(* ===== verification/_CoqProject ===== *)
-Q . S2P
Prelude.v
WlcWire.v
WlcSchema.v
WlcCodec.v
WlcHash.v
WlcRoundtrip.v
WlcDecoded.v
WlcCompat.v
WlcValue.v
FciMessages.v
FciApi.v
FciProperties.v
FciSizes.v
UsbUri.v
DeviceTypes.v
Endpoint.v
EndpointOps.v
EndpointInv.v
EndpointProps.v
EndpointCalls.v
Commands.v
ControlGeneration.v
ReceiveCallbackGate.v
FciRpc.v
UpgradeClient.v
UpgradeProps.v
UpgradeTransfer.v
Prog.v
RuntimeCalls.v
ManagedRpc.v
RuntimeService.v
RuntimeDispatch.v
RpcEndpoint.v
RuntimeSamples.v
RpcProps.v
DispatchProps.v
RuntimeProps.v
WaitProps.v
RuntimeInit.v
EndpointInit.v
LayoutProps.v
LifecycleProps.v
RuntimeApi.v
Bindings.v
Discovery.v
UpdateSession.v
FirmwareUpdater.v
ArmImpl.v
ArmProps.v
ArmConnect.v
ArmThreads.v
GateRefinement.v
Arith.v
MPCTrajectory.v
MPCSession.v
MPCSafety.v
MPCThreads.v
Latency.v
MotorRegisters.v
Transports.v
EndpointSetup.v
MPCSolver.v
ArmMPC.v
Casadi.v
Polynomials.v
Symbolic.v
Analyses.v
WillowTraits.v
PantheraTraits.v
MpcModel.v
ArmModel.v
Kinematics.v
Dynamics.v
MpcForward1.v
MpcForward.v
MpcCost.v
PartialRuns.v
MpcDynamics.v
MpcCapsule.v
MpcAgreement.v
