(* ===== verification/Prelude.v ===== *)
(** * A verification of libflorid, the SDK of the Florid arm

    The SDK talks to an arm's controller over a message protocol.  A caller
    submits operations and real-time commands to the device endpoint; the
    endpoint keeps a queue of RPCs and a control lease, and hands requests to the
    generated runtime of the protocol, which encodes them and calls a link
    library; what comes back is dispatched, decoded and validated before a caller
    sees it.  Above the endpoint are the arm (its lifecycle and control loops),
    the position controller, device discovery and the firmware updater; beside
    them, the kinematics and dynamics of the arms and the model that the position
    controller plans with, which are generated C functions.  The development
    follows that path from the bytes up, and then turns to the generated
    functions.

    ** Files and the code they model

    - [Prelude.v] (this file): machine integers with their wrap-around, the
      result monad, closures of step relations, tactics and the hint database
      [florid].
    - The codec, [generated/wirelink/codec/fci_device.c], lines 1-747:
      [WlcWire.v] (varints, zigzag, UTF-8, fixed words), [WlcSchema.v] (field
      tables, struct values, field lookup), [WlcCodec.v] (measuring, clearing,
      encoding, skipping, decoding) and [WlcHash.v] (fingerprints).  The
      emitter is in the C file twice, over a cursor and over a hash; it is one
      function over the class [Sink].
    - Its theory: [WlcRoundtrip.v] (well-formed tables, valid structs, the
      reference encoding [enc], encode then decode), [WlcDecoded.v] (decode then
      encode, fuel), [WlcCompat.v] (unknown and repeated fields).
    - The protocol, lines 816-8603 of the same file: [FciMessages.v] (the 67
      descriptor tables), [WlcValue.v] (owned values over a table), [FciApi.v]
      (the fifteen generated functions of every message), [FciSizes.v] (the
      identifier and size constants of [fci_device_values.h]) and
      [FciProperties.v] (the theorems for the tables of the protocol).
    - [UsbUri.v]: [src/UsbDiscovery.cpp], the whole file: USB URIs, selection of
      a device, the URI of a device.
    - [DeviceTypes.v]: the domain types of [include/florid/DeviceTypes.hpp] and
      their conversions from and to wire structs at the top of
      [src/FciWirelinkEndpoint.cpp].
    - The endpoint, [src/FciWirelinkEndpoint.cpp]: [Endpoint.v] (its state),
      [EndpointOps.v] (its operations: submission, results, completion, the
      owner's pass, stop, deadlines), [EndpointInv.v] (the step relation and its
      invariant), [EndpointProps.v] (what it promises), [EndpointCalls.v] (the
      public calls and the requests on the wire).
    - [Commands.v]: the ten [send*] functions of that file; [EndpointSetup.v]: how
      the endpoint is initialised, attached, started, stopped and fed with bytes;
      [Transports.v]: the three transports ([src/AstrialBulkTransport.cpp],
      [src/AstrialUSBTransport.cpp], [src/UdpTransport.cpp]).
    - [Latency.v]: [src/LatencyEstimator.cpp], [include/florid/Duration.hpp] and
      [include/florid/detail/LatestValue.hpp]; [MotorRegisters.v]:
      [include/florid/MotorRegisters.hpp].
    - The gates between threads: [ControlGeneration.v]
      ([include/florid/detail/ControlGeneration.hpp]) and [ReceiveCallbackGate.v]
      ([ReceiveCallbackGate.hpp]), access by access of their atomics.
    - The firmware upgrade client: [FciRpc.v] (the managed calls it makes),
      [UpgradeClient.v] (its data and operations, [src/FciUpgradeClient.cpp]),
      [UpgradeProps.v] and [UpgradeTransfer.v] (its theorems and sample runs).
    - [Prog.v]: programs that call out, with their runs and the tactics on them.
    - The generated runtime, [generated/wirelink/host/fci_device_runtime.c] and
      [.h]: [RuntimeCalls.v] (what it calls in the link library, the cells and
      the application), [ManagedRpc.v] (calls of version 2, client and server),
      [RuntimeService.v] (calls of version 1, polling, peers, sending responses,
      deadlines), [RuntimeDispatch.v] (dispatching an event, retained messages),
      [RpcEndpoint.v] (the endpoint around a runtime: a pass of its owner,
      completions, asynchronous, synchronous and manual calls), [RuntimeInit.v]
      (configuration, layout of the storage, initialisation), [EndpointInit.v]
      (initialising, creating and destroying an endpoint) and [RuntimeApi.v] (the
      generated functions of each of the 22 RPCs, and the dispatch's cases).
      [RuntimeSamples.v] has the call at which its theorems are tried.
    - Its theory: [RpcProps.v] (managed calls from end to end),
      [DispatchProps.v], [RuntimeProps.v] (service, completions, passes,
      synchronous calls), [WaitProps.v], [LayoutProps.v] and [LifecycleProps.v].
    - [Bindings.v]: [generated/wirelink/codec/fci_device_bindings.c]: the router
      with its counters, the 67 routes, and sending each message.
    - [Discovery.v]: [src/DeviceDiscovery.cpp]; [UpdateSession.v]:
      [src/FirmwareUpdateSession.cpp]; [FirmwareUpdater.v]:
      [src/FirmwareUpdater.cpp]; each the whole file.
    - The arm: [ArmImpl.v] ([src/ArmImpl.cpp]), [ArmProps.v] (its remote
      operations), [ArmConnect.v] ([src/Arm.cpp], connecting), [ArmThreads.v]
      (control loops beside other threads) and [GateRefinement.v] (the gate the
      arm uses is the one of [ControlGeneration.v]).
    - The position controller: [Arith.v] (doubles and reals), [MPCTrajectory.v]
      (cubic segments and their check), [MPCSession.v] ([src/MPCSession.cpp]:
      both workers and the callers' functions), [MPCSafety.v] (what the workers
      send, publish and end with), [MPCThreads.v] (the system of its threads),
      [MPCSolver.v] ([include/florid/mpc/CartesianMPC.hpp] and
      [generated/WillowMPCTraits.hpp]: the wrapper around the generated solver),
      [ArmMPC.v] (the arm in the build with the controller) and [MpcCapsule.v]
      ([generated/c_generated_code/acados_solver_willow_mpc.c]: the generated
      solver over the calls to acados).
    - The generated functions, instruction by instruction: [WillowTraits.v] and
      [PantheraTraits.v] ([include/florid/traits], twelve functions each),
      [MpcModel.v], [MpcForward1.v], [MpcForward.v] and [MpcCost.v] (the ten
      functions of [generated/c_generated_code]; the sensitivities have 146,000
      lines, hence two files).  [Casadi.v] says what an instruction does, in any
      arithmetic; [ArmModel.v] is [include/florid/Model.hpp] over them.
    - Their theory: [Polynomials.v] and [Symbolic.v] (runs on polynomials of the
      sines and cosines of the joints), [Analyses.v] (shapes, shared values,
      degrees, superposition), [PartialRuns.v] (runs that may be undefined, by
      polynomials and by intervals); [Kinematics.v], [Dynamics.v], [MpcCost.v],
      [MpcDynamics.v] and [MpcAgreement.v] have the theorems.

    ** State and steps

    A codec routine is a function on byte lists that returns a status or a
    value ([res]); an output buffer is the list of bytes stored so far.

    The device endpoint is one record of what its mutex protects; a member
    function is a function on the record, and the interleavings of producers, the
    owner thread and the link are the relation [EndpointInv.ep_step]: a
    submission with any arguments (so a check made under an earlier lock may be
    stale), a pass of the owner, a completion of the active RPC, a result being
    taken, a change of the running flag, and the stop on the owner.  Reachable
    states are those of [steps ep_step endpoint0].  The upgrade client is modelled
    the same way, over a link that also records each message committed to it
    ([UpgradeProps.recorded]), so that what was sent is counted where it is sent;
    the gates have a step for every access of an atomic.

    Code that talks to the outside (the runtime to the link library, the arm and
    the updater to their endpoints, the workers of the controller to clocks and
    atomics) is a program of [Prog.v]: a tree of calls.  A theorem about it
    speaks of every trace of calls and answers, that is, of every behaviour of
    what it calls, except what a hypothesis says.  [ArmThreads.v] and
    [MPCThreads.v] interleave the programs of the code, call by call: a thread is
    what is left of such a program, and a step is its next call with any answer
    that the shared objects allow.  What a program has done so far (is it inside
    the gate, which lock does it hold) is ghost state of the proofs, which no step
    asks for.

    The runtime's own state is the record [ManagedRpc.fci_device_runtime_t], and
    the generated endpoint's is [RpcEndpoint.fci_device_endpoint_t], which has the
    frames of the synchronous calls that are live; callbacks of the library from
    inside a call are in its answer, and are run before the program goes on.

    A generated function is the list of its instructions, and [call_casadi] runs
    them on the arrays of a call.  The class [Casadi.Ops] is an arithmetic: the
    program's floats and doubles (with the sine and cosine of the C library as
    arguments), the reals on the program's rounded constants ([exact_ops]),
    polynomials, intervals, value numbers.  Runs in related arithmetics are
    related, so that one run on polynomials, computed once, speaks of every call.

    ** Theorems

    - Codec: what an encoder writes decodes to the same message
      ([wlc_roundtrip], [value_roundtrip]); what a decoder accepts encodes again
      within the input's length ([wlc_decode_canonical]); encoders respect their
      capacity and the size constants ([wlc_encode_exact], [max_encoded_size]);
      unknown fields are ignored and duplicates refused; varints, UTF-8 and
      zigzag are exact; field lookup agrees with a scan; fingerprints hash the
      encoding.
    - Endpoint: one RPC in flight, distinct ids, a reserved slot
      ([endpoint_invariant]); FIFO order ([queue_order]); deadlines hold in the
      queue ([queue_deadline]) and the owner wakes for them ([deadline_hint]); a
      token comes from a grant and is kept ([command_token_granted]); leases are
      renewed ([lease_renewal]) and expire ([lease_expires]); a result is taken
      once ([result_taken_once]); stopping cancels ([stop_cancels]); public calls
      check their arguments ([public_call_effect]) and are sent as they were made
      ([request_payload_roundtrip], [settings_payload]).
    - Commands: an accepted command decodes at the device to the caller's
      values with the lease token and the next sequence number
      ([command_sent]); others are refused without effect ([command_refused]).
    - USB: selection finds the one device a URI names
      ([selectUsbBulkDevice_spec]), and a device's own URI selects it
      ([device_uri_selects]).
    - Gates: after [invalidate] no command of an older generation is sent
      ([invalidate_excludes]), and it returns ([invalidate_returns]); a receive
      callback runs only while it is set ([callback_exclusive]); the interface
      that the arm uses is implemented ([gate_refines]).
    - Runtime: a managed call comes back as it was answered
      ([managed_response_roundtrip]) and its request arrives as it was made
      ([managed_request_roundtrip]); a dispatch delivers what the event carries to
      the one call or cell it names ([dispatch_delivers]) and settles the event
      and every claim ([dispatch_settles], [dispatch_by_case]); a response is
      submitted or given back ([service_settles]); an application is called back
      once per call ([completions_called_once]); a pass keeps the first failure
      ([step_keeps_first_failure]); a synchronous call leaves nothing behind
      ([sync_leaves_nothing]) and its wait ends with the call
      ([wait_ends_with_call]).
    - Storage and life: regions are aligned and apart ([layout_fits]), the stated
      requirements are exact ([requirements_exact]), the arena is large enough
      ([arena_enough]), the validation agrees with the initialisation
      ([init_validated]); an allocated endpoint is freed once ([create_balanced],
      [destroy_frees]), and handles of an earlier incarnation are dead
      ([handles_expire]).
    - Bindings: the router hands each message to its own handler
      ([router_delivers]), and its counters account for every event
      ([counters_exact]).
    - Upgrade: one upgrade at a time ([upgrade_exclusive]), which suspends control
      ([upgrade_suspends_control]); a reboot request is given to the link once
      ([reboot_once]) and the success of an update is what the device then says
      ([install_confirmed]).
    - Arm: identity before the lease ([open_identifies_first]); after a stop no
      command of an earlier session, whatever operations of the arm run beside it
      ([stop_excludes_commands]); homing gives the lease back as it was
      ([home_restores_lease]); the feedback mailbox is a mailbox
      ([feedback_mailbox]).
    - Position controller: the check of a segment decides its limits
      ([within_decides_limits], [sampleMPC_respects]); plans are successful solves
      ([plans_are_solutions]); every output was checked, against the plan and the
      deadline that the history of calls gives ([outputs_guarded]); the
      session makes progress and stops for good ([session_progress],
      [stop_is_final]).  A plan of the solver with the status of success is inside
      the limits ([solver_plans_inside]); a session is started for a prepared arm
      ([mpc_starts_prepared]) and the loop over poses stops the one it started
      ([pose_session_stopped]); acados is called with live objects and arrays that
      are long enough, and everything is destroyed once
      ([solver_used_in_order]); the problem has the wrapper's limits
      ([limits_agree]).
    - Setting up: the endpoint is set up in order ([setup_in_order]), bytes are fed
      in order ([bytes_fed_in_order]), a transport's adapters are given back
      ([adapters_balanced]).
    - Latency and registers: the reported jitter and rate are those of the last 64
      intervals ([estimator_exact]); a motor's settings are written in order, each
      after the one before it was done, and read as they were written
      ([settings_kept]).
    - Kinematics: the forward kinematics are the product of the joints' transforms
      ([pose_is_joint_chain]) and rigid ([frames_are_rigid]); the Jacobian is the
      derivative of the pose ([zero_jacobian_is_derivative]), the body Jacobian the
      same in the frame of the body ([body_jacobian_is_rotated]).
    - Dynamics: the mass matrix is symmetric ([mass_matrix_is_symmetric]), Coriolis
      forces are quadratic ([coriolis_is_quadratic]), gravity is linear and has a
      potential ([gravity_is_linear], [gravity_is_conservative]).
    - The model of the controller: the cost's derivatives are its derivatives
      ([cost_jacobian_is_derivative], [cost_hessian_is_derivative]); the
      sensitivities carry the equations of motion, bit for bit
      ([sensitivities_carry_ode]), and are linear ([state_sensitivities_are_linear],
      [adjoint_is_linear]); the torques of gravity hold the model still
      ([mpc_gravity_holds_still]); it is the arm that the program describes, within
      2e-6 Nm and 1e-7 m ([mpc_model_is_the_arm]).  All 34 generated functions are
      memory safe, in any arithmetic ([generated_functions_are_safe]).

    ** Fuel

    The varint loops run at most ten rounds, as in the code (nine further
    bytes after the first).  The decoding loop has the length of its input as
    fuel: every round consumes a byte, and [decode_loop_terminates] shows that
    more fuel changes nothing.  Binary search has the number of fields plus
    one; the port path parser the length of its text.

    Loops that the code ends only when a clock, a device or another thread says
    so have a fuel that counts their rounds, and return [None] (or [Unfinished])
    when it is spent, which is a run that has not returned yet: [wait_loop] of
    discovery, [observe] and [s_deviceInfo] of an installation, [wait_ready],
    [control_rounds] and [gripper_rounds] of the arm, [plan_passes],
    [output_passes] and [waitUntil] of the controller, [pose_rounds] of the arm
    with the controller, [s_feedBytes] of the endpoint, and [sync_wait] of the
    runtime.  That they end when they should is a theorem each:
    [waitUntilReady_ends], [install_reboots_once], [session_progress],
    [wait_ends_with_call], [bytes_fed_in_order].  The other functions are
    structural; the generated functions have no loops.

    The analyses of generated functions give up what becomes too large: a
    polynomial of [PartialRuns.v] has at most 50 terms, intervals are multiples of
    2^-80.  Both are sound for any bound; these are enough for the theorems,
    whose checks are computed.

    ** Conventions and limits

    Floats are bit patterns; the order of [DeviceTypes.v] is that of IEEE 754
    for numbers, and NaN is excluded by [isfinite] wherever the code compares.
    Pointers are 64 bits wide.  Null pointers for outputs and objects, which the
    routines of the codec and of the runtime reject first, are not represented,
    except where null is a state (a role that is off, a cell that is absent, a
    storage that is not given).  The request counter is assumed not to wrap
    ([ids_left]: 2^64 - 2 submissions).  Statistics counters of the device
    endpoint are left out.  The scratch messages of the runtime share a union in
    C; each is cleared before it is decoded into, so they are separate here.

    The theorems about kinematics, dynamics and the cost that speak of reals are
    of the exact value of the generated expressions on the program's constants,
    each rounded as the compiler rounds it; rounding during a call is not bounded.
    Those that say so hold in any arithmetic, so of the program's own results.

    Not modelled: the link library, its executor and adapters, acados and the USB
    stack (third-party code, behind calls); of the generated runtime, the dispatch
    of a server's requests to handlers, which the SDK's configuration compiles
    out, and the tables of the driver; the allocation functions that CasADi
    generates, which do nothing; messages to stderr; the Python bindings, examples
    and tests. *)

From Stdlib Require Export ZArith Lia Bool.
From stdpp Require Export base tactics option list numbers.

#[global] Open Scope Z_scope.

(** ** Machine integers

    Fixed-width integers are [Z]; [wrap w] is the conversion to an unsigned
    type of [w] bits and [swrap w] the conversion to the two's-complement
    signed type of that width (every compiler the code supports, and C++20,
    reduce modulo [2^w]). *)

Definition wrap (w : Z) (z : Z) : Z := z mod 2 ^ w.

Definition swrap (w : Z) (z : Z) : Z :=
  let u := z mod 2 ^ w in if u <? 2 ^ (w - 1) then u else u - 2 ^ w.

Abbreviation u8 := (wrap 8).
Abbreviation u16 := (wrap 16).
Abbreviation u32 := (wrap 32).
Abbreviation u64 := (wrap 64).

(** [in_u w z]: [z] is a value of the unsigned type of [w] bits. *)
Definition in_u (w z : Z) : Prop := 0 <= z < 2 ^ w.
Definition in_s (w z : Z) : Prop := - 2 ^ (w - 1) <= z < 2 ^ (w - 1).

(** [SIZE_MAX] of the 64-bit hosts the SDK is built for. *)
Definition SIZE_MAX : Z := 2 ^ 64 - 1.

(** A byte buffer is a list of values in [0, 256). *)
Abbreviation bytes := (list Z).
Definition bytes_ok (l : bytes) : Prop := Forall (in_u 8) l.

Create HintDb florid discriminated.
#[export] Hint Constants Opaque : florid.
#[export] Hint Unfold in_u in_s : florid.

Lemma wrap_range w z : 0 <= w -> in_u w (wrap w z).
Proof. intros Hw. apply Z.mod_pos_bound. lia. Qed.

Lemma wrap_id w z : in_u w z -> wrap w z = z.
Proof. apply Z.mod_small. Qed.

Lemma swrap_range w z : 1 <= w -> in_s w (swrap w z).
Proof.
  intros Hw. unfold swrap, in_s.
  assert (2 ^ w = 2 * 2 ^ (w - 1)) as Hp
    by (rewrite <- Z.pow_succ_r by lia; f_equal; lia).
  pose proof (Z.mod_pos_bound z (2 ^ w) ltac:(lia)).
  destruct (Z.ltb_spec (z mod 2 ^ w) (2 ^ (w - 1))); lia.
Qed.

Lemma swrap_id w z : 1 <= w -> in_s w z -> swrap w z = z.
Proof.
  intros Hw Hz. unfold swrap, in_s in *.
  assert (2 ^ w = 2 * 2 ^ (w - 1)) as Hp
    by (rewrite <- Z.pow_succ_r by lia; f_equal; lia).
  destruct (Z.ltb_spec z 0).
  - replace (z mod 2 ^ w) with (z + 2 ^ w)
      by (rewrite <- (Z.mod_add _ 1) by lia; rewrite Z.mod_small; lia).
    destruct (Z.ltb_spec (z + 2 ^ w) (2 ^ (w - 1))); lia.
  - rewrite Z.mod_small by lia.
    destruct (Z.ltb_spec z (2 ^ (w - 1))); lia.
Qed.

Lemma swrap_wrap w z : 1 <= w -> swrap w (wrap w z) = swrap w z.
Proof. intros Hw. unfold swrap, wrap. rewrite Z.mod_mod by lia. done. Qed.

#[export] Hint Resolve wrap_range swrap_range : florid.

(** The signed difference of a wrapping clock is the time that passed. *)
Lemma swrap_elapsed w x d : 1 <= w -> in_s w d -> swrap w (wrap w (x + d) - x) = d.
Proof.
  intros Hw Hd. rewrite <- (swrap_id w d) at 2 by done. unfold swrap, wrap.
  assert (((x + d) mod 2 ^ w - x) mod 2 ^ w = d mod 2 ^ w) as ->; [|done].
  rewrite Zminus_mod_idemp_l. f_equal. lia.
Qed.

(** ** Bit-level facts used by the wire format *)

Lemma testbit_above w z i : in_u w z -> 0 <= w <= i -> Z.testbit z i = false.
Proof.
  intros Hz Hi. rewrite <- (Z.mod_small z (2 ^ w)) by done.
  apply Z.mod_pow2_bits_high. lia.
Qed.

Lemma lor_shiftl_add a b k :
  0 <= k -> in_u k a -> Z.lor a (Z.shiftl b k) = a + b * 2 ^ k.
Proof.
  intros Hk Ha. rewrite <- Z.shiftl_mul_pow2 by lia.
  rewrite <- Z.lxor_lor, <- Z.add_nocarry_lxor; [done| |];
    apply Z.bits_inj'; intros i Hi; rewrite Z.land_spec, Z.bits_0, Z.shiftl_spec by lia;
    destruct (Z.ltb_spec i k);
      [rewrite (Z.testbit_neg_r b) by lia; apply andb_false_r
      | rewrite (testbit_above k a) by (done || lia); done
      | rewrite (Z.testbit_neg_r b) by lia; apply andb_false_r
      | rewrite (testbit_above k a) by (done || lia); done].
Qed.

Lemma shiftl_lor_add a b k :
  0 <= k -> in_u k b -> Z.lor (Z.shiftl a k) b = a * 2 ^ k + b.
Proof. intros. rewrite Z.lor_comm, lor_shiftl_add by done. lia. Qed.

(** [Z.land] with a mask of low ones, for the masks the code uses. *)
Lemma land_127 z : Z.land z 127 = z mod 128.
Proof. apply (Z.land_ones z 7). lia. Qed.
Lemma land_255 z : Z.land z 255 = z mod 256.
Proof. apply (Z.land_ones z 8). lia. Qed.
Lemma land_63 z : Z.land z 63 = z mod 64.
Proof. apply (Z.land_ones z 6). lia. Qed.
Lemma land_7 z : Z.land z 7 = z mod 8.
Proof. apply (Z.land_ones z 3). lia. Qed.
Lemma land_1 z : Z.land z 1 = z mod 2.
Proof. apply (Z.land_ones z 1). lia. Qed.

(** ** Error results

    A routine that returns a status and, on success, a value. *)

Inductive res (E A : Type) : Type :=
| Ok (a : A)
| Err (e : E).
Arguments Ok {E A} a.
Arguments Err {E A} e.

#[global] Instance res_ret E : MRet (res E) := fun A a => Ok a.
#[global] Instance res_bind E : MBind (res E) := fun A B k m =>
  match m with Ok a => k a | Err e => Err e end.

Lemma res_bind_ok {E A B} (m : res E A) (k : A -> res E B) b :
  mbind k m = Ok b <-> exists a, m = Ok a /\ k a = Ok b.
Proof.
  destruct m as [a|e]; simpl; split; [by eauto|by intros (? & [= <-] & ?)|done|].
  by intros (? & ? & ?).
Qed.

(** ** Reachability by a step relation *)

Section reachable.
Context {S : Type} (step : S -> S -> Prop).

Inductive steps : S -> S -> Prop :=
| steps_refl s : steps s s
| steps_cons s1 s2 s3 : step s1 s2 -> steps s2 s3 -> steps s1 s3.

(** An invariant preserved by each step holds along every execution. *)
Lemma steps_invariant (I : S -> Prop) :
  (forall s s', I s -> step s s' -> I s') ->
  forall s s', steps s s' -> I s -> I s'.
Proof. intros HI s s' Hs. induction Hs; eauto. Qed.

Lemma steps_trans s1 s2 s3 : steps s1 s2 -> steps s2 s3 -> steps s1 s3.
Proof. induction 1; eauto using steps_cons. Qed.
End reachable.

(** ** Tactics *)

(** Case analysis on the integer comparisons of a goal or hypothesis. *)
Ltac zcases :=
  repeat match goal with
  | |- context [Z.ltb ?a ?b] => destruct (Z.ltb_spec a b)
  | |- context [Z.leb ?a ?b] => destruct (Z.leb_spec a b)
  | |- context [Z.eqb ?a ?b] => destruct (Z.eqb_spec a b)
  | |- context [Z.gtb ?a ?b] => rewrite (Z.gtb_ltb a b)
  | |- context [Z.geb ?a ?b] => rewrite (Z.geb_leb a b)
  end.

Ltac zcases_in H := revert H; zcases; intros H.

(** Side conditions on integer ranges. *)
Ltac range :=
  first [ done | lia | apply wrap_range; lia | apply swrap_range; lia
        | unfold in_u, in_s in *; lia | auto with florid ].
