(* ===== verification/WlcWire.v ===== *)
(** * The wire primitives of the Wirelink codec

    [generated/wirelink/codec/fci_device.c], lines 46-112 and 255-286: checked
    size addition, LEB128 varints, UTF-8 validation, zigzag integers and the
    big-endian fixed-width words.  A writer is modelled by the bytes it stores
    through its cursor, a reader by the input that is left after its cursor:
    [in + *at] with [n - *at] bytes is the list [rest]. *)

From S2P Require Import Prelude.

(** ** Status codes *)

Inductive wl_codec_status :=
| WL_CODEC_OK
| WL_CODEC_ERR_OVERFLOW
| WL_CODEC_ERR_MALFORMED
| WL_CODEC_ERR_INVALID_VALUE
| WL_CODEC_ERR_UTF8
| WL_CODEC_ERR_MISSING_REQUIRED_FIELD
| WL_CODEC_ERR_CAPACITY
| WL_CODEC_ERR_WIRE_TYPE
| WL_CODEC_ERR_DUPLICATE_FIELD.

#[global] Instance wl_codec_status_eq_dec : EqDecision wl_codec_status.
Proof. solve_decision. Defined.

Abbreviation codec := (res wl_codec_status).

(** ** Definitions *)

Definition wlc_add (a b : Z) : codec Z :=
  if b >? SIZE_MAX - a then Err WL_CODEC_ERR_OVERFLOW else Ok (a + b).

(** [while (v >= 128U) { v >>= 7U; ++n; }]: nine rounds empty a 64-bit value. *)
Fixpoint wlc_vsize_loop (fuel : nat) (v n : Z) : Z :=
  match fuel with
  | O => n
  | S k => if v >=? 128 then wlc_vsize_loop k (Z.shiftr v 7) (n + 1) else n
  end.
Definition wlc_vsize (v : Z) : Z := wlc_vsize_loop 9 v 1.

Fixpoint wlc_putv_loop (fuel : nat) (v : Z) : bytes :=
  match fuel with
  | O => [u8 v]
  | S k => if v >=? 128
           then u8 (Z.lor v 128) :: wlc_putv_loop k (Z.shiftr v 7)
           else [u8 v]
  end.
Definition wlc_putv (v : Z) : bytes := wlc_putv_loop 9 v.

(** The loop of [wlc_getv]: [n] bytes have been read into [v].  The input ends
    with MALFORMED; a tenth byte may only hold the last bit of the value. *)
Fixpoint wlc_getv_loop (rest : bytes) (n v : Z) : codec (Z * bytes) :=
  match rest with
  | [] => Err WL_CODEC_ERR_MALFORMED
  | b :: rest' =>
      if n <? 10 then
        if (n =? 9) && (b >? 1) then Err WL_CODEC_ERR_OVERFLOW
        else
          let v' := Z.lor v (u64 (Z.shiftl (Z.land b 127) (7 * n))) in
          if Z.land b 128 =? 0 then
            if negb (wlc_vsize v' =? n + 1) then Err WL_CODEC_ERR_MALFORMED
            else Ok (v', rest')
          else wlc_getv_loop rest' (n + 1) v'
      else Err WL_CODEC_ERR_OVERFLOW
  end.
Definition wlc_getv (rest : bytes) : codec (Z * bytes) := wlc_getv_loop rest 0 0.

(** [while (need-- != 0U)]: [need] continuation bytes folded into [v]. *)
Fixpoint wlc_utf8_cont (need : nat) (v : Z) (s : bytes) : option (Z * bytes) :=
  match need with
  | O => Some (v, s)
  | S k => match s with
           | b :: s' => if negb (Z.land b 192 =? 128) then None
                        else wlc_utf8_cont k (Z.lor (u32 (Z.shiftl v 6)) (Z.land b 63)) s'
           | [] => None
           end
  end.

(** The number of continuation bytes a lead byte asks for, and its payload. *)
Definition wlc_utf8_lead (a : Z) : option (nat * Z) :=
  if (a >=? 194) && (a <=? 223) then Some (1%nat, Z.land a 31)
  else if (a >=? 224) && (a <=? 239) then Some (2%nat, Z.land a 15)
  else if (a >=? 240) && (a <=? 244) then Some (3%nat, Z.land a 7)
  else None.

Fixpoint wlc_utf8_loop (fuel : nat) (s : bytes) : bool :=
  match fuel, s with
  | _, [] => true
  | O, _ => false
  | S k, a :: s1 =>
      if a <? 128 then wlc_utf8_loop k s1
      else match wlc_utf8_lead a with
      | None => false
      | Some (need, v0) =>
          if Z.of_nat need >? Z.of_nat (length s1) then false
          else match wlc_utf8_cont need v0 s1 with
          | None => false
          | Some (v, s2) =>
              if ((a =? 224) && (v <? 2048)) || ((a =? 237) && (v >=? 55296)) ||
                 ((a =? 240) && (v <? 65536)) || ((a =? 244) && (v >? 1114111))
              then false
              else wlc_utf8_loop k s2
          end
      end
  end.
Definition wlc_utf8 (s : bytes) : bool := wlc_utf8_loop (length s) s.

Definition wlc_z32 (v : Z) : Z :=
  Z.lxor (u32 (Z.shiftl (u32 v) 1)) (u32 (- (if v <? 0 then 1 else 0))).
Definition wlc_z64 (v : Z) : Z :=
  Z.lxor (u64 (Z.shiftl (u64 v) 1)) (u64 (- (if v <? 0 then 1 else 0))).
Definition wlc_uz32 (v : Z) : Z :=
  swrap 32 (Z.lxor (Z.shiftr v 1) (u32 (- Z.land v 1))).
Definition wlc_uz64 (v : Z) : Z :=
  swrap 64 (Z.lxor (Z.shiftr v 1) (u64 (- Z.land v 1))).

Definition wlc_put32 (v : Z) : bytes :=
  [u8 (Z.shiftr v 24); u8 (Z.shiftr v 16); u8 (Z.shiftr v 8); u8 v].
Definition wlc_put64 (v : Z) : bytes :=
  wlc_put32 (u32 (Z.shiftr v 32)) ++ wlc_put32 (u32 v).

(** [bits = (bits << 8U) | byte] over the bytes of a fixed-width word. *)
Definition wlc_be (l : bytes) : Z :=
  foldl (fun bits b => Z.lor (u64 (Z.shiftl bits 8)) b) 0 l.

(** ** Byte-sized facts by enumeration *)

Definition byte_range : bytes := map Z.of_nat (seq 0 256).

Lemma byte_forall (P : Z -> bool) :
  forallb P byte_range = true -> forall b, in_u 8 b -> P b = true.
Proof.
  intros HP b Hb. unfold in_u in Hb. rewrite forallb_forall in HP. apply HP.
  unfold byte_range. rewrite in_map_iff. exists (Z.to_nat b).
  rewrite in_seq. lia.
Qed.

Ltac by_bytes P :=
  let H := fresh in
  pose proof (byte_forall P ltac:(vm_compute; reflexivity)) as H;
  cbv beta in H.

Lemma land_128_spec b : in_u 8 b -> (Z.land b 128 =? 0) = (b <? 128).
Proof.
  by_bytes (fun b => Bool.eqb (Z.land b 128 =? 0) (b <? 128)).
  intros Hb. by apply eqb_prop, H.
Qed.

Lemma land_192_spec b : in_u 8 b -> (Z.land b 192 =? 128) = (128 <=? b) && (b <? 192).
Proof.
  by_bytes (fun b => Bool.eqb (Z.land b 192 =? 128) ((128 <=? b) && (b <? 192))).
  intros Hb. by apply eqb_prop, H.
Qed.

Lemma u8_lor_128 w : u8 (Z.lor w 128) = w mod 128 + 128.
Proof.
  transitivity (Z.lor (w mod 128) (Z.shiftl 1 7)).
  - rewrite <- land_127. unfold wrap. rewrite <- Z.land_ones by lia.
    apply Z.bits_inj'. intros i Hi.
    rewrite !Z.land_spec, !Z.lor_spec, Z.land_spec.
    change 127 with (Z.ones 7).
    destruct (Z.ltb_spec i 7); [|destruct (Z.eqb_spec i 7)].
    + rewrite !Z.ones_spec_low by lia. rewrite !andb_true_r. done.
    + subst. rewrite (Z.ones_spec_low 8), (Z.ones_spec_high 7) by lia.
      rewrite andb_true_r, andb_false_r. by rewrite orb_comm.
    + rewrite (Z.ones_spec_high 8), (Z.ones_spec_high 7) by lia.
      rewrite !andb_false_r. cbn [orb].
      symmetry. apply (testbit_above 8); [by vm_compute|lia].
  - rewrite lor_shiftl_add; [reflexivity|lia|apply (Z.mod_pos_bound w 128); lia].
Qed.

(** ** Varints *)

Lemma log2_div7_shift v : 128 <= v -> Z.log2 (Z.shiftr v 7) / 7 + 1 = Z.log2 v / 7.
Proof.
  intros Hv. rewrite Z.log2_shiftr by lia.
  assert (7 <= Z.log2 v) by (apply Z.log2_le_pow2; lia).
  rewrite Z.max_r by lia.
  replace (Z.log2 v) with (Z.log2 v - 7 + 1 * 7) at 2 by lia.
  rewrite Z.div_add by lia. lia.
Qed.

Lemma shiftr7_bound v m : 0 <= v < 2 ^ (7 * (m + 1)) -> 0 <= m -> 0 <= Z.shiftr v 7 < 2 ^ (7 * m).
Proof.
  intros Hv Hm. rewrite Z.shiftr_div_pow2 by lia.
  split; [apply Z.div_pos; lia|]. apply Z.div_lt_upper_bound; [lia|].
  rewrite <- Z.pow_add_r by lia. replace (7 + 7 * m) with (7 * (m + 1)) by lia. lia.
Qed.

Lemma vsize_loop_log2 fuel : forall v n,
  0 <= v < 2 ^ (7 * (Z.of_nat fuel + 1)) -> wlc_vsize_loop fuel v n = n + Z.log2 v / 7.
Proof.
  assert (forall v, 0 <= v < 128 -> Z.log2 v / 7 = 0) as Hsmall.
  { intros v Hv. apply Z.div_small. split; [apply Z.log2_nonneg|].
    destruct (Z.eqb_spec v 0) as [->|]; [done|]. apply Z.log2_lt_pow2; lia. }
  induction fuel as [|k IH]; intros v n Hv; cbn [wlc_vsize_loop].
  - rewrite Hsmall by (change (2 ^ (7 * (Z.of_nat 0 + 1))) with 128 in Hv; lia). lia.
  - zcases; [|rewrite Hsmall by lia; lia].
    rewrite IH by (apply shiftr7_bound; [|lia];
      by replace (Z.of_nat k + 1 + 1) with (Z.of_nat (S k) + 1) by lia).
    pose proof (log2_div7_shift v ltac:(lia)). lia.
Qed.

Lemma wlc_vsize_log2 v : in_u 64 v -> wlc_vsize v = 1 + Z.log2 v / 7.
Proof. intros Hv. apply vsize_loop_log2. unfold in_u in Hv. change (2 ^ (7 * (Z.of_nat 9 + 1))) with (2 ^ 70). lia. Qed.

Lemma wlc_vsize_bounds v : in_u 64 v -> 1 <= wlc_vsize v <= 10.
Proof.
  intros Hv. rewrite wlc_vsize_log2 by done. unfold in_u in Hv.
  pose proof (Z.log2_nonneg v).
  assert (Z.log2 v <= 63).
  { destruct (Z.eqb_spec v 0) as [->|]; [simpl; lia|].
    enough (Z.log2 v < 64) by lia. apply Z.log2_lt_pow2; lia. }
  split; [pose proof (Z.div_pos (Z.log2 v) 7 ltac:(lia) ltac:(lia)); lia|].
  pose proof (Z.div_le_mono (Z.log2 v) 63 7 ltac:(lia) ltac:(lia)).
  change (63 / 7) with 9 in *. lia.
Qed.

Lemma wlc_vsize_mono v w : in_u 64 w -> 0 <= v <= w -> wlc_vsize v <= wlc_vsize w.
Proof.
  intros Hw Hv. unfold in_u in *. rewrite !wlc_vsize_log2 by (unfold in_u; lia).
  pose proof (Z.log2_le_mono v w ltac:(lia)).
  pose proof (Z.div_le_mono (Z.log2 v) (Z.log2 w) 7 ltac:(lia) ltac:(lia)). lia.
Qed.

Lemma putv_loop_length fuel : forall v,
  0 <= v < 2 ^ (7 * (Z.of_nat fuel + 1)) ->
  Z.of_nat (length (wlc_putv_loop fuel v)) = 1 + Z.log2 v / 7.
Proof.
  intros v Hv. rewrite <- (vsize_loop_log2 fuel v 1) by done.
  assert (forall n, wlc_vsize_loop fuel v n = n - 1 + Z.of_nat (length (wlc_putv_loop fuel v))) as ->;
    [clear Hv|lia].
  revert v. induction fuel as [|k IH]; intros v n;
    cbn [wlc_vsize_loop wlc_putv_loop length]; [lia|].
  zcases; cbn [length]; [rewrite IH|]; lia.
Qed.

(** The size the encoder reserves for a varint is the size it writes. *)
Lemma wlc_putv_length v : in_u 64 v -> Z.of_nat (length (wlc_putv v)) = wlc_vsize v.
Proof.
  intros Hv. rewrite wlc_vsize_log2 by done. apply putv_loop_length.
  unfold in_u in Hv. change (2 ^ (7 * (Z.of_nat 9 + 1))) with (2 ^ 70). lia.
Qed.

(** One more base-128 digit above [7 * n] bits. *)
Lemma digit_split acc w n :
  0 <= n -> acc + w * 2 ^ (7 * n) = acc + w mod 128 * 2 ^ (7 * n) + w / 128 * 2 ^ (7 * (n + 1)).
Proof.
  intros Hn. replace (7 * (n + 1)) with (7 + 7 * n) by lia.
  rewrite Z.pow_add_r by lia. pose proof (Z.div_mod w 128). nia.
Qed.

Lemma digit_bound acc d n :
  0 <= n -> in_u (7 * n) acc -> 0 <= d < 128 -> in_u (7 * (n + 1)) (acc + d * 2 ^ (7 * n)).
Proof.
  unfold in_u. intros Hn Hacc Hd. replace (7 * (n + 1)) with (7 + 7 * n) by lia.
  rewrite Z.pow_add_r by lia. nia.
Qed.

(** The digit read from a byte lands above the bits read so far. *)
Lemma getv_digit acc b n :
  0 <= n <= 9 -> in_u (7 * n) acc -> in_u 8 b -> (n = 9 -> b <= 1) ->
  Z.lor acc (u64 (Z.shiftl (Z.land b 127) (7 * n))) = acc + b mod 128 * 2 ^ (7 * n).
Proof.
  intros Hn Hacc Hb H9. rewrite land_127, <- (lor_shiftl_add acc) by (done || lia).
  f_equal. apply wrap_id. rewrite Z.shiftl_mul_pow2 by lia.
  pose proof (Z.mod_pos_bound b 128 ltac:(lia)). unfold in_u in *.
  split; [apply Z.mul_nonneg_nonneg; lia|].
  destruct (Z.eqb_spec n 9) as [->|].
  - rewrite (Z.mod_small b) by lia. change (7 * 9) with 63.
    apply Z.le_lt_trans with (1 * 2 ^ 63); [apply Z.mul_le_mono_nonneg_r; lia|lia].
  - apply Z.lt_le_trans with (2 ^ 7 * 2 ^ (7 * n)); [apply Z.mul_lt_mono_pos_r; lia|].
    rewrite <- Z.pow_add_r by lia. apply Z.pow_le_mono_r; lia.
Qed.

Lemma vsize_digits acc w n :
  0 <= n -> in_u (7 * n) acc -> 0 < w -> in_u 64 (acc + w * 2 ^ (7 * n)) ->
  wlc_vsize (acc + w * 2 ^ (7 * n)) = n + 1 + Z.log2 w / 7.
Proof.
  intros Hn Hacc Hw Hv. rewrite wlc_vsize_log2 by done.
  replace (Z.log2 (acc + w * 2 ^ (7 * n))) with (Z.log2 w + n * 7);
    [rewrite Z.div_add by lia; lia|].
  symmetry. pose proof (Z.log2_nonneg w). unfold in_u in *.
  apply Z.log2_unique; [lia|].
  pose proof (Z.log2_spec w Hw) as [Hlo Hhi].
  replace (Z.succ (Z.log2 w + n * 7)) with (Z.succ (Z.log2 w) + 7 * n) by lia.
  replace (Z.log2 w + n * 7) with (Z.log2 w + 7 * n) by lia.
  rewrite !Z.pow_add_r by lia. nia.
Qed.

Lemma u64_quot w n k : in_u 64 (k + w * 2 ^ (7 * n)) -> 0 <= k -> 0 <= w -> 0 <= n -> n <= 9 ->
  w < 2 ^ (64 - 7 * n).
Proof.
  unfold in_u. intros Hv Hk Hw Hn Hn9.
  replace 64 with ((64 - 7 * n) + 7 * n) in Hv by lia.
  rewrite Z.pow_add_r in Hv by lia. nia.
Qed.

Lemma log2_small_div w : 0 <= w < 128 -> Z.log2 w / 7 = 0.
Proof.
  intros Hw. apply Z.div_small. split; [apply Z.log2_nonneg|].
  destruct (Z.eqb_spec w 0) as [->|]; [done|]. apply Z.log2_lt_pow2; lia.
Qed.

Lemma vsize_last acc w n :
  0 <= n -> in_u (7 * n) acc -> 0 <= w < 128 -> (0 < n -> 0 < w) ->
  in_u 64 (acc + w * 2 ^ (7 * n)) -> wlc_vsize (acc + w * 2 ^ (7 * n)) = n + 1.
Proof.
  intros Hn Hacc Hw Hpos Hv. destruct (Z.eqb_spec n 0) as [->|].
  - rewrite Z.mul_0_r, Z.mul_1_r in *. unfold in_u in Hacc. assert (acc = 0) as -> by lia.
    rewrite wlc_vsize_log2, log2_small_div by (done || lia). done.
  - rewrite vsize_digits, log2_small_div by (done || lia). lia.
Qed.

(** The final byte of a varint. *)
Lemma getv_last acc w n rest :
  0 <= n <= 9 -> in_u (7 * n) acc -> 0 <= w < 128 -> (0 < n -> 0 < w) -> (n = 9 -> w <= 1) ->
  in_u 64 (acc + w * 2 ^ (7 * n)) ->
  wlc_getv_loop (w :: rest) n acc = Ok (acc + w * 2 ^ (7 * n), rest).
Proof.
  intros Hn Hacc Hw Hpos H9 Hv. cbn [wlc_getv_loop].
  assert (in_u 8 w) by (unfold in_u; lia).
  rewrite getv_digit, land_128_spec, (Z.mod_small w), vsize_last by (done || lia).
  zcases; cbn [andb negb]; (done || lia).
Qed.

Lemma getv_putv_loop fuel : forall w n acc rest,
  0 <= n -> n + Z.of_nat fuel = 9 -> in_u (7 * n) acc -> 0 <= w ->
  (0 < n -> 0 < w) -> in_u 64 (acc + w * 2 ^ (7 * n)) ->
  wlc_getv_loop (wlc_putv_loop fuel w ++ rest) n acc = Ok (acc + w * 2 ^ (7 * n), rest).
Proof.
  induction fuel as [|k IH]; intros w n acc rest Hn Hf Hacc Hw Hpos Hv;
    pose proof (u64_quot w n acc Hv ltac:(unfold in_u in *; lia) Hw Hn ltac:(lia)) as Hwn.
  - assert (n = 9) as -> by lia. change (2 ^ (64 - 7 * 9)) with 2 in Hwn.
    cbn [wlc_putv_loop app]. rewrite wrap_id by (unfold in_u; lia).
    apply getv_last; (done || lia).
  - cbn [wlc_putv_loop]. rewrite Z.geb_leb. destruct (Z.leb_spec 128 w) as [Hge|Hlt].
    + pose proof (Z.mod_pos_bound w 128 ltac:(lia)) as Hmod.
      assert (in_u 8 (w mod 128 + 128)) by (unfold in_u; lia).
      rewrite u8_lor_128. cbn [app wlc_getv_loop].
      assert (n <> 9) by (intros ->; change (2 ^ (64 - 7 * 9)) with 2 in Hwn; lia).
      rewrite getv_digit, land_128_spec by (done || lia).
      replace ((w mod 128 + 128) mod 128) with (w mod 128)
        by (rewrite <- (Z.mul_1_l 128) at 3; rewrite Z.mod_add, Z.mod_mod by lia; done).
      destruct (Z.ltb_spec n 10); [|lia].
      destruct (Z.eqb_spec n 9); [lia|]. cbn [andb].
      destruct (Z.ltb_spec (w mod 128 + 128) 128); [lia|].
      rewrite (digit_split acc w n) in Hv |- * by done.
      rewrite Z.shiftr_div_pow2 by lia. change (2 ^ 7) with 128.
      assert (0 < w / 128) by (apply Z.div_str_pos; lia).
      rewrite IH; [done|lia|lia|by apply digit_bound|lia|lia|done].
    + rewrite wrap_id by (unfold in_u; lia). cbn [app].
      apply getv_last; [lia|done|lia|done|lia|done].
Qed.

Lemma getv_putv v rest : in_u 64 v -> wlc_getv (wlc_putv v ++ rest) = Ok (v, rest).
Proof.
  intros Hv. unfold wlc_getv, wlc_putv, in_u in *.
  pose proof (getv_putv_loop 9 v 0 0 rest) as H.
  assert (0 + v * 2 ^ (7 * 0) = v) as E by (change (2 ^ (7 * 0)) with 1; lia).
  rewrite E in H. apply H; unfold in_u; (done || lia).
Qed.

(** Whatever the reader accepts is what the writer would have produced. *)
Lemma getv_loop_canonical rest : forall n acc v rest',
  0 <= n <= 9 -> in_u (7 * n) acc -> bytes_ok rest ->
  wlc_getv_loop rest n acc = Ok (v, rest') ->
  exists w, v = acc + w * 2 ^ (7 * n) /\ in_u 64 v /\ 0 <= w /\ (0 < n -> 0 < w) /\
    rest = wlc_putv_loop (Z.to_nat (9 - n)) w ++ rest'.
Proof.
  induction rest as [|b rest IH]; intros n acc v rest' Hn Hacc Hok Hget; [done|].
  cbn [wlc_getv_loop] in Hget.
  apply Forall_cons_1 in Hok as [Hb Hok].
  destruct (Z.ltb_spec n 10); [|done].
  destruct ((n =? 9) && (b >? 1)) eqn:H9; [done|].
  assert (n = 9 -> b <= 1) as Hb9.
  { intros ->. rewrite Z.gtb_ltb in H9. destruct (Z.ltb_spec 1 b); [done|lia]. }
  rewrite getv_digit, land_128_spec in Hget by (done || lia).
  set (acc' := acc + b mod 128 * 2 ^ (7 * n)) in *.
  pose proof (Z.mod_pos_bound b 128 ltac:(lia)) as Hmod.
  assert (in_u (7 * (n + 1)) acc') as Hacc' by (by apply digit_bound; [lia|..]).
  destruct (Z.ltb_spec b 128) as [Hlt|Hge].
  - destruct (Z.eqb_spec (wlc_vsize acc') (n + 1)) as [Hsz|]; [|done].
    injection Hget as <- <-. exists b.
    assert (acc' = acc + b * 2 ^ (7 * n)) as Heq by (unfold acc'; rewrite Z.mod_small by (unfold in_u in Hb; lia); done).
    assert (in_u 64 acc') as Hv.
    { destruct (Z.eqb_spec n 9) as [->|].
      - rewrite Heq. unfold in_u in *. change (2 ^ (7 * 9)) with (2 ^ 63) in *. lia.
      - unfold in_u in *. pose proof (Z.pow_le_mono_r 2 (7 * (n + 1)) 64 ltac:(lia) ltac:(lia)). lia. }
    unfold in_u in Hb. split_and!; [done|done|lia| |].
    + intros Hpos. destruct (Z.eqb_spec b 0) as [->|]; [exfalso|lia].
      rewrite wlc_vsize_log2 in Hsz by done. rewrite Heq, Z.mul_0_l, Z.add_0_r in Hsz.
      unfold in_u in Hacc. destruct (Z.eqb_spec acc 0) as [->|].
      * change (Z.log2 0 / 7) with 0 in Hsz. lia.
      * assert (Z.log2 acc < 7 * n) by (apply Z.log2_lt_pow2; lia).
        pose proof (Z.div_lt_upper_bound (Z.log2 acc) 7 n ltac:(lia) ltac:(lia)). lia.
    + destruct (Z.to_nat (9 - n)); cbn [wlc_putv_loop]; [|rewrite Z.geb_leb; destruct (Z.leb_spec 128 b); [lia|]];
        rewrite wrap_id by (unfold in_u; lia); done.
  - destruct (Z.eqb_spec n 9); [specialize (Hb9 ltac:(done)); lia|].
    apply IH in Hget as (w & Hv & Hv64 & Hw & Hpos & ->); [|lia|done|done].
    specialize (Hpos ltac:(lia)). unfold in_u in Hb.
    assert (b = b mod 128 + 128) as Hbm.
    { pose proof (Z.div_mod b 128 ltac:(lia)). assert (b / 128 = 1) by
        (symmetry; apply (Z.div_unique b 128 1 (b - 128)); lia). lia. }
    exists (b mod 128 + w * 128).
    assert ((b mod 128 + w * 128) mod 128 = b mod 128) as Hm
      by (rewrite Z.mod_add, Z.mod_mod by lia; done).
    assert ((b mod 128 + w * 128) / 128 = w) as Hd
      by (rewrite Z.div_add by lia; rewrite (Z.div_small (b mod 128)) by lia; lia).
    split_and!; [|done|lia|lia|].
    + rewrite Hv. unfold acc'. rewrite (digit_split acc (b mod 128 + w * 128)) by lia.
      rewrite Hm, Hd. done.
    + replace (Z.to_nat (9 - n)) with (S (Z.to_nat (9 - (n + 1)))) by lia.
      cbn [wlc_putv_loop]. rewrite Z.geb_leb. destruct (Z.leb_spec 128 (b mod 128 + w * 128)); [|lia].
      rewrite u8_lor_128, Hm, <- Hbm, Z.shiftr_div_pow2 by lia. change (2 ^ 7) with 128.
      rewrite Hd. done.
Qed.

Lemma getv_canonical rest v rest' :
  bytes_ok rest -> wlc_getv rest = Ok (v, rest') -> in_u 64 v /\ rest = wlc_putv v ++ rest'.
Proof.
  intros Hok Hget. apply getv_loop_canonical in Hget
    as (w & -> & Hv & _ & _ & ->); [|lia|by unfold in_u; lia|done].
  change (2 ^ (7 * 0)) with 1 in *. rewrite Z.add_0_l, Z.mul_1_r in *. done.
Qed.

Lemma putv_loop_bytes fuel v : bytes_ok (wlc_putv_loop fuel v).
Proof.
  revert v. induction fuel as [|k IH]; intros v; cbn [wlc_putv_loop];
    [|destruct (v >=? 128)]; repeat constructor; try (apply wrap_range; lia). apply IH.
Qed.
Lemma putv_bytes v : bytes_ok (wlc_putv v).
Proof. apply putv_loop_bytes. Qed.
#[export] Hint Resolve putv_bytes : florid.

(** The reader consumes at least one byte. *)
Lemma getv_shorter rest v rest' :
  bytes_ok rest -> wlc_getv rest = Ok (v, rest') ->
  Z.of_nat (length rest) = Z.of_nat (length rest') + wlc_vsize v /\ bytes_ok rest'.
Proof.
  intros Hok Hget. destruct (getv_canonical _ _ _ Hok Hget) as [Hv ->].
  rewrite length_app, Nat2Z.inj_add, wlc_putv_length by done.
  apply Forall_app in Hok as [_ Hok]. split; [lia|done].
Qed.

(** ** Zigzag integers *)

Lemma lxor_ones_sub w x : 0 <= w -> in_u w x -> Z.lxor x (Z.ones w) = Z.ones w - x.
Proof.
  intros Hw Hx. set (y := Z.lxor x (Z.ones w)).
  assert (Z.land x y = 0) as Hland.
  { apply Z.bits_inj'. intros i Hi. unfold y. rewrite Z.land_spec, Z.lxor_spec, Z.bits_0.
    destruct (Z.ltb_spec i w).
    - rewrite Z.ones_spec_low by lia. by destruct (Z.testbit x i).
    - rewrite (testbit_above w x) by (done || lia). done. }
  pose proof (Z.add_nocarry_lxor x y Hland) as Hadd. unfold y in Hadd at 2.
  rewrite <- Z.lxor_assoc, Z.lxor_nilpotent, Z.lxor_0_l in Hadd. lia.
Qed.

(** [zz w]/[uzz w]: the code's zigzag at width [w]. *)
Definition zz (w v : Z) : Z :=
  Z.lxor (wrap w (Z.shiftl (wrap w v) 1)) (wrap w (- (if v <? 0 then 1 else 0))).
Definition uzz (w v : Z) : Z :=
  swrap w (Z.lxor (Z.shiftr v 1) (wrap w (- Z.land v 1))).

Lemma wrap_opp_1 w : 0 <= w -> wrap w (-1) = Z.ones w.
Proof.
  intros Hw. unfold wrap. rewrite Z.ones_equiv.
  assert (0 < 2 ^ w) by (apply Z.pow_pos_nonneg; lia).
  rewrite <- (Z.mod_add (-1) 1) by lia. rewrite Z.mod_small by lia. lia.
Qed.

Lemma zz_spec w v : 1 <= w -> in_s w v -> zz w v = if v <? 0 then - 2 * v - 1 else 2 * v.
Proof.
  intros Hw Hv. unfold zz, in_s in *.
  assert (2 ^ w = 2 * 2 ^ (w - 1)) as Hp
    by (rewrite <- Z.pow_succ_r by lia; f_equal; lia).
  rewrite Z.shiftl_mul_pow2 by lia. change (2 ^ 1) with 2.
  unfold wrap at 1 2. rewrite Z.mul_mod_idemp_l by lia. fold (wrap w (v * 2)).
  destruct (Z.ltb_spec v 0).
  - change (- (1)) with (-1). rewrite wrap_opp_1, lxor_ones_sub by range.
    rewrite Z.ones_equiv. unfold wrap.
    rewrite <- (Z.mod_add (v * 2) 1), Z.mod_small by lia. lia.
  - change (wrap w (- (0))) with (0 mod 2 ^ w). rewrite Z.mod_0_l, Z.lxor_0_r by lia.
    rewrite wrap_id by (unfold in_u; lia). lia.
Qed.

Lemma uzz_spec w u : 1 <= w -> in_u w u ->
  uzz w u = if u mod 2 =? 0 then u / 2 else - (u / 2) - 1.
Proof.
  intros Hw Hu. unfold uzz, in_u in *.
  assert (2 ^ w = 2 * 2 ^ (w - 1)) as Hp
    by (rewrite <- Z.pow_succ_r by lia; f_equal; lia).
  rewrite land_1, Z.shiftr_div_pow2 by lia. change (2 ^ 1) with 2.
  pose proof (Z.div_mod u 2 ltac:(lia)). pose proof (Z.mod_pos_bound u 2 ltac:(lia)).
  destruct (Z.eqb_spec (u mod 2) 0) as [E|E].
  - rewrite E. change (wrap w (- (0))) with (0 mod 2 ^ w).
    rewrite Z.mod_0_l, Z.lxor_0_r by lia. apply swrap_id; [done|unfold in_s; lia].
  - replace (u mod 2) with 1 by lia. change (- (1)) with (-1).
    rewrite wrap_opp_1, lxor_ones_sub by (unfold in_u; lia). rewrite Z.ones_equiv.
    unfold swrap. rewrite Z.mod_small by lia. zcases; lia.
Qed.

Lemma zz_range w v : 1 <= w -> in_s w v -> in_u w (zz w v).
Proof.
  intros Hw Hv. rewrite zz_spec by done. unfold in_s, in_u in *.
  assert (2 ^ w = 2 * 2 ^ (w - 1)) as Hp
    by (rewrite <- Z.pow_succ_r by lia; f_equal; lia).
  zcases; lia.
Qed.

Lemma uzz_zz w v : 1 <= w -> in_s w v -> uzz w (zz w v) = v.
Proof.
  intros Hw Hv. rewrite uzz_spec by (auto using zz_range). rewrite zz_spec by done.
  destruct (Z.ltb_spec v 0).
  - replace (-2 * v - 1) with (1 + (- v - 1) * 2) by lia.
    rewrite Z.mod_add, Z.div_add by lia. simpl. change (1 / 2) with 0. lia.
  - rewrite (Z.mul_comm 2), Z.mod_mul, Z.div_mul by lia. done.
Qed.

Lemma uzz_range w u : 1 <= w -> in_u w u -> in_s w (uzz w u).
Proof. intros. unfold uzz. range. Qed.

Lemma zz_uzz w u : 1 <= w -> in_u w u -> zz w (uzz w u) = u.
Proof.
  intros Hw Hu. rewrite zz_spec by auto using uzz_range. rewrite uzz_spec by done.
  unfold in_u in *.
  pose proof (Z.div_mod u 2 ltac:(lia)). pose proof (Z.mod_pos_bound u 2 ltac:(lia)).
  pose proof (Z.div_pos u 2 ltac:(lia) ltac:(lia)).
  destruct (Z.eqb_spec (u mod 2) 0); zcases; lia.
Qed.

Lemma wlc_z32_zz v : wlc_z32 v = zz 32 v. Proof. done. Qed.
Lemma wlc_z64_zz v : wlc_z64 v = zz 64 v. Proof. done. Qed.
Lemma wlc_uz32_uzz v : wlc_uz32 v = uzz 32 v. Proof. done. Qed.
Lemma wlc_uz64_uzz v : wlc_uz64 v = uzz 64 v. Proof. done. Qed.

(** ** Fixed-width big-endian words *)

Lemma be_step acc b :
  0 <= acc < 2 ^ 56 -> in_u 8 b -> Z.lor (u64 (Z.shiftl acc 8)) b = acc * 256 + b.
Proof.
  intros Hacc Hb. rewrite Z.shiftl_mul_pow2 by lia.
  rewrite wrap_id by (unfold in_u; lia). rewrite <- Z.shiftl_mul_pow2 by lia.
  rewrite shiftl_lor_add by (done || lia). done.
Qed.

Lemma put32_bytes v : bytes_ok (wlc_put32 v).
Proof. repeat constructor; try (apply wrap_range; lia). Qed.
Lemma put64_bytes v : bytes_ok (wlc_put64 v).
Proof. apply Forall_app. split; apply put32_bytes. Qed.
#[export] Hint Resolve put32_bytes put64_bytes : florid.

Lemma be_app l1 l2 : wlc_be (l1 ++ l2) =
  foldl (fun bits b => Z.lor (u64 (Z.shiftl bits 8)) b) (wlc_be l1) l2.
Proof. unfold wlc_be. apply foldl_app. Qed.

Lemma be_fold_4 acc b1 b2 b3 b4 :
  0 <= acc < 2 ^ 32 -> in_u 8 b1 -> in_u 8 b2 -> in_u 8 b3 -> in_u 8 b4 ->
  foldl (fun bits b => Z.lor (u64 (Z.shiftl bits 8)) b) acc [b1; b2; b3; b4] =
  acc * 2 ^ 32 + b1 * 16777216 + b2 * 65536 + b3 * 256 + b4.
Proof.
  unfold in_u. intros. cbn [foldl].
  rewrite (be_step acc) by (unfold in_u; lia). rewrite (be_step (_ + b1)) by (unfold in_u; lia).
  rewrite (be_step (_ + b2)), (be_step (_ + b3)) by (unfold in_u; lia). lia.
Qed.

Lemma be_fold_put32 acc v :
  0 <= acc < 2 ^ 32 -> in_u 32 v ->
  foldl (fun bits b => Z.lor (u64 (Z.shiftl bits 8)) b) acc (wlc_put32 v) = acc * 2 ^ 32 + v.
Proof.
  intros Hacc Hv. unfold wlc_put32. rewrite be_fold_4 by range.
  unfold wrap, in_u in *. rewrite !Z.shiftr_div_pow2 by lia.
  change (2 ^ 24) with 16777216. change (2 ^ 16) with 65536. change (2 ^ 8) with 256.
  Z.to_euclidean_division_equations. lia.
Qed.

Lemma be_put32 v : in_u 32 v -> wlc_be (wlc_put32 v) = v.
Proof. intros Hv. unfold wlc_be. rewrite be_fold_put32 by (done || lia). lia. Qed.

Lemma be_put64 v : in_u 64 v -> wlc_be (wlc_put64 v) = v.
Proof.
  intros Hv. unfold wlc_put64. rewrite be_app. unfold in_u in Hv.
  assert (in_u 32 (Z.shiftr v 32)) as Hhi.
  { rewrite Z.shiftr_div_pow2 by lia. unfold in_u.
    split; [apply Z.div_pos; lia|apply Z.div_lt_upper_bound; lia]. }
  rewrite wrap_id by done. rewrite be_put32 by done.
  rewrite be_fold_put32 by range.
  rewrite Z.shiftr_div_pow2 by lia. unfold wrap.
  pose proof (Z.div_mod v (2 ^ 32) ltac:(lia)). lia.
Qed.

Lemma be_range l : bytes_ok l -> in_u 64 (wlc_be l).
Proof.
  unfold wlc_be. assert (in_u 64 0) as H0 by (unfold in_u; lia).
  revert H0. generalize 0. induction l as [|b l IH]; intros acc Hacc Hok; [done|].
  apply Forall_cons_1 in Hok as [Hb Hok]. cbn [foldl]. apply IH; [|done].
  pose proof (wrap_range 64 (Z.shiftl acc 8) ltac:(lia)) as Hw. unfold in_u in *.
  set (x := u64 _) in *. split; [apply Z.lor_nonneg; lia|]. destruct (Z.eqb_spec (Z.lor x b) 0) as [->|Hnz]; [lia|].
  apply Z.log2_lt_pow2; [assert (0 <= Z.lor x b) by (apply Z.lor_nonneg; lia); lia|].
  rewrite Z.log2_lor by lia.
  assert (forall y, 0 <= y < 2 ^ 64 -> Z.log2 y < 64) as Hlog.
  { intros y Hy. destruct (Z.eqb_spec y 0) as [->|]; [done|]. apply Z.log2_lt_pow2; lia. }
  pose proof (Hlog x ltac:(lia)). pose proof (Hlog b ltac:(lia)). lia.
Qed.

Lemma be_range_32 l : bytes_ok l -> length l = 4%nat -> in_u 32 (wlc_be l).
Proof.
  intros Hok Hl. do 5 (destruct l as [|? l]; try done).
  unfold bytes_ok in Hok. decompose_Forall_hyps.
  unfold wlc_be. rewrite be_fold_4 by range. unfold in_u in *. lia.
Qed.

(** ** UTF-8 *)

(** The reference: the encoding of a Unicode scalar value (RFC 3629). *)
Definition scalar (cp : Z) : Prop :=
  0 <= cp < 1114112 /\ ~ (55296 <= cp < 57344).

Definition utf8_encode (cp : Z) : bytes :=
  if cp <? 128 then [cp]
  else if cp <? 2048 then [192 + cp / 64; 128 + cp mod 64]
  else if cp <? 65536 then [224 + cp / 4096; 128 + cp / 64 mod 64; 128 + cp mod 64]
  else [240 + cp / 262144; 128 + cp / 4096 mod 64; 128 + cp / 64 mod 64; 128 + cp mod 64].

Lemma utf8_cont_step k v b s :
  0 <= v < 2 ^ 26 -> in_u 8 b ->
  wlc_utf8_cont (S k) v (b :: s) =
  if (128 <=? b) && (b <? 192) then wlc_utf8_cont k (v * 64 + (b - 128)) s else None.
Proof.
  intros Hv Hb. cbn [wlc_utf8_cont]. rewrite land_192_spec by done. unfold in_u in Hb.
  destruct (Z.leb_spec 128 b), (Z.ltb_spec b 192); cbn [andb negb]; try done.
  f_equal. rewrite land_63, Z.shiftl_mul_pow2, wrap_id by range.
  rewrite <- Z.shiftl_mul_pow2, shiftl_lor_add by (unfold in_u; Z.to_euclidean_division_equations; lia).
  Z.to_euclidean_division_equations. lia.
Qed.

Lemma utf8_lead_spec a : in_u 8 a -> 128 <= a ->
  wlc_utf8_lead a =
    if (194 <=? a) && (a <=? 223) then Some (1%nat, a - 192)
    else if (224 <=? a) && (a <=? 239) then Some (2%nat, a - 224)
    else if (240 <=? a) && (a <=? 244) then Some (3%nat, a - 240) else None.
Proof.
  by_bytes (fun a => if a <? 128 then true else
    match wlc_utf8_lead a,
      (if (194 <=? a) && (a <=? 223) then Some (1%nat, a - 192)
       else if (224 <=? a) && (a <=? 239) then Some (2%nat, a - 224)
       else if (240 <=? a) && (a <=? 244) then Some (3%nat, a - 240) else None) with
    | Some (n, v), Some (n', v') => Nat.eqb n n' && (v =? v')
    | None, None => true
    | _, _ => false
    end).
  intros Ha Hge. specialize (H a Ha). destruct (Z.ltb_spec a 128); [lia|].
  revert H. destruct (wlc_utf8_lead a) as [[n v]|]; repeat case_match; try done.
  all: intros [?%Nat.eqb_eq ?%Z.eqb_eq]%andb_prop; congruence.
Qed.

(** The range test that rejects overlong forms, surrogates and values above
    U+10FFFF. *)
Definition utf8_out_of_range (a v : Z) : bool :=
  ((a =? 224) && (v <? 2048)) || ((a =? 237) && (v >=? 55296)) ||
  ((a =? 240) && (v <? 65536)) || ((a =? 244) && (v >? 1114111)).

(** Decide every comparison of the goal from the hypotheses. *)
Ltac decide_cmp :=
  repeat match goal with
  | |- context [Z.geb ?a ?b] => rewrite (Z.geb_leb a b)
  | |- context [Z.gtb ?a ?b] => rewrite (Z.gtb_ltb a b)
  | |- context [Z.ltb ?a ?b] =>
      first [ rewrite (proj2 (Z.ltb_lt a b)) by lia | rewrite (proj2 (Z.ltb_ge a b)) by lia ]
  | |- context [Z.leb ?a ?b] =>
      first [ rewrite (proj2 (Z.leb_le a b)) by lia | rewrite (proj2 (Z.leb_gt a b)) by lia ]
  | |- context [Z.eqb ?a ?b] =>
      first [ rewrite (proj2 (Z.eqb_eq a b)) by lia | rewrite (proj2 (Z.eqb_neq a b)) by lia ]
  end; cbn [andb orb negb].

Lemma utf8_loop_multi k a s1 :
  in_u 8 a -> 128 <= a ->
  wlc_utf8_loop (S k) (a :: s1) =
  match wlc_utf8_lead a with
  | None => false
  | Some (need, v0) =>
      match wlc_utf8_cont need v0 s1 with
      | None => false
      | Some (v, s2) => if utf8_out_of_range a v then false else wlc_utf8_loop k s2
      end
  end.
Proof.
  intros Ha Hge. cbn [wlc_utf8_loop]. decide_cmp.
  destruct (wlc_utf8_lead a) as [[need v0]|]; [|done].
  rewrite Z.gtb_ltb. destruct (Z.ltb_spec (Z.of_nat (length s1)) (Z.of_nat need)); [|done].
  enough (wlc_utf8_cont need v0 s1 = None) as -> by done.
  assert (length s1 < need)%nat as Hlt by lia. clear -Hlt.
  revert v0 s1 Hlt. induction need as [|n IH]; intros v0 s1 Hlt; [lia|].
  destruct s1 as [|b s1]; cbn [wlc_utf8_cont length] in *; [done|].
  case_match; [done|]. apply IH. lia.
Qed.

Lemma utf8_loop_encode k cp s :
  scalar cp -> bytes_ok s ->
  wlc_utf8_loop (S k) (utf8_encode cp ++ s) = wlc_utf8_loop k s.
Proof.
  intros [Hcp Hsur] Hs. unfold utf8_encode.
  destruct (Z.ltb_spec cp 128); [|destruct (Z.ltb_spec cp 2048); [|destruct (Z.ltb_spec cp 65536)]];
    cbn [app].
  - cbn [wlc_utf8_loop]. by decide_cmp.
  - assert (2 <= cp / 64 <= 31) by (Z.to_euclidean_division_equations; lia).
    assert (0 <= cp mod 64 < 64 /\ cp = cp / 64 * 64 + cp mod 64)
      by (Z.to_euclidean_division_equations; lia).
    rewrite utf8_loop_multi, utf8_lead_spec by range. decide_cmp.
    rewrite utf8_cont_step by range. decide_cmp. cbn [wlc_utf8_cont].
    unfold utf8_out_of_range. by decide_cmp.
  - assert (0 <= cp / 4096 <= 15 /\ 0 <= cp / 64 mod 64 < 64 /\ 0 <= cp mod 64 < 64 /\
      cp = cp / 4096 * 4096 + cp / 64 mod 64 * 64 + cp mod 64)
      by (Z.to_euclidean_division_equations; lia).
    rewrite utf8_loop_multi, utf8_lead_spec by range. decide_cmp.
    rewrite !utf8_cont_step by range. decide_cmp. cbn [wlc_utf8_cont].
    match goal with |- context [utf8_out_of_range ?a ?v] =>
      assert (utf8_out_of_range a v = false) as ->; [|done];
      assert (v = cp) as -> by lia end.
    unfold utf8_out_of_range. zcases; cbn [andb orb]; try done; lia.
  - assert (0 <= cp / 262144 <= 4 /\ 0 <= cp / 4096 mod 64 < 64 /\
      0 <= cp / 64 mod 64 < 64 /\ 0 <= cp mod 64 < 64 /\
      cp = cp / 262144 * 262144 + cp / 4096 mod 64 * 4096 + cp / 64 mod 64 * 64 + cp mod 64)
      by (Z.to_euclidean_division_equations; lia).
    rewrite utf8_loop_multi, utf8_lead_spec by range. decide_cmp.
    rewrite !utf8_cont_step by range. decide_cmp. cbn [wlc_utf8_cont].
    match goal with |- context [utf8_out_of_range ?a ?v] =>
      assert (utf8_out_of_range a v = false) as ->; [|done];
      assert (v = cp) as -> by lia end.
    unfold utf8_out_of_range. zcases; cbn [andb orb]; try done; lia.
Qed.

(** A continuation run that succeeds consumed bytes in [0x80, 0xBF]. *)
Lemma utf8_cont_inv k v s r s' :
  0 <= v < 2 ^ 26 -> bytes_ok s -> wlc_utf8_cont (S k) v s = Some (r, s') ->
  exists d s1, s = 128 + d :: s1 /\ 0 <= d < 64 /\ bytes_ok s1 /\
    wlc_utf8_cont k (v * 64 + d) s1 = Some (r, s').
Proof.
  intros Hv Hs Hc. destruct s as [|b s1]; [done|].
  apply Forall_cons_1 in Hs as [Hb Hs]. rewrite utf8_cont_step in Hc by done.
  destruct (Z.leb_spec 128 b), (Z.ltb_spec b 192); try done.
  exists (b - 128), s1. split_and!; [f_equal; lia|lia|lia|done|done].
Qed.

Lemma utf8_loop_inv k a s :
  bytes_ok (a :: s) -> wlc_utf8_loop (S k) (a :: s) = true ->
  exists cp s', scalar cp /\ a :: s = utf8_encode cp ++ s' /\ wlc_utf8_loop k s' = true.
Proof.
  intros [Ha Hs]%Forall_cons_1 Hl. unfold scalar, utf8_encode.
  destruct (Z.ltb_spec a 128).
  { cbn [wlc_utf8_loop] in Hl. rewrite (proj2 (Z.ltb_lt a 128)) in Hl by lia.
    exists a, s. unfold in_u in Ha. decide_cmp. split_and!; [lia..|done|done]. }
  rewrite utf8_loop_multi, utf8_lead_spec in Hl by done.
  unfold in_u in Ha.
  destruct ((194 <=? a) && (a <=? 223)) eqn:E1;
    [|destruct ((224 <=? a) && (a <=? 239)) eqn:E2;
    [|destruct ((240 <=? a) && (a <=? 244)) eqn:E3; [|done]]];
    (destruct (wlc_utf8_cont _ _ s) as [[v s']|] eqn:Hc; [|done]);
    (destruct (utf8_out_of_range a v) eqn:Hr; [done|]);
    unfold utf8_out_of_range in Hr; rewrite ?Z.geb_leb, ?Z.gtb_ltb in Hr.
  all: repeat match type of Hc with wlc_utf8_cont (S _) _ _ = _ =>
      apply utf8_cont_inv in Hc as (? & ? & -> & ? & ? & Hc); [|lia|done] end.
  all: cbn [wlc_utf8_cont] in Hc; injection Hc as Hv <-; exists v; eexists; split; [lia|split; [|exact Hl]].
  - decide_cmp. cbn [app]. repeat f_equal; Z.to_euclidean_division_equations; lia.
  - decide_cmp. cbn [app]. repeat f_equal; Z.to_euclidean_division_equations; lia.
  - decide_cmp. cbn [app]. repeat f_equal; Z.to_euclidean_division_equations; lia.
Qed.

(** ** The validator decides well-formed UTF-8 *)

Lemma utf8_encode_bytes cp : scalar cp -> bytes_ok (utf8_encode cp).
Proof.
  intros [Hcp _]. unfold utf8_encode, bytes_ok.
  zcases; repeat constructor; unfold in_u; Z.to_euclidean_division_equations; lia.
Qed.

Lemma utf8_encode_pos cp : (0 < length (utf8_encode cp))%nat.
Proof. unfold utf8_encode. zcases; cbn [length]; lia. Qed.

Lemma utf8_loop_complete cps : Forall scalar cps -> forall k,
  (length (concat (map utf8_encode cps)) <= k)%nat ->
  wlc_utf8_loop k (concat (map utf8_encode cps)) = true.
Proof.
  induction 1 as [|cp cps Hcp Hcps IH]; intros k Hk; [by destruct k|].
  cbn [map concat] in *. rewrite length_app in Hk.
  pose proof (utf8_encode_pos cp). destruct k as [|k]; [lia|].
  rewrite utf8_loop_encode; [apply IH; lia|done|].
  clear -Hcps. induction Hcps; cbn [map concat]; [constructor|].
  apply Forall_app. split; [by apply utf8_encode_bytes|done].
Qed.

Lemma utf8_loop_sound k : forall s, bytes_ok s -> wlc_utf8_loop k s = true ->
  exists cps, Forall scalar cps /\ s = concat (map utf8_encode cps).
Proof.
  induction k as [|k IH]; intros [|a s] Hs Hl; try done; try (by exists []).
  destruct (utf8_loop_inv k a s Hs Hl) as (cp & s' & Hcp & Heq & Hl').
  rewrite Heq in Hs |- *. apply Forall_app in Hs as [_ Hs].
  destruct (IH s' Hs Hl') as (cps & Hcps & ->).
  exists (cp :: cps). split; [by constructor|done].
Qed.

(** A byte string passes [wlc_utf8] exactly when it is a concatenation of
    RFC 3629 encodings of Unicode scalar values: overlong forms, surrogates,
    values above U+10FFFF and truncated sequences are the only rejections. *)
Theorem wlc_utf8_spec s :
  bytes_ok s ->
  wlc_utf8 s = true <-> exists cps, Forall scalar cps /\ s = concat (map utf8_encode cps).
Proof.
  intros Hs. split; [by apply utf8_loop_sound|].
  intros (cps & Hcps & ->). by apply utf8_loop_complete.
Qed.

Lemma wlc_utf8_spec_witness :
  bytes_ok [226; 130; 172] /\
  exists cps, Forall scalar cps /\ [226; 130; 172] = concat (map utf8_encode cps).
Proof.
  assert (bytes_ok [226; 130; 172]) as Hok by (repeat constructor; done).
  split; [exact Hok|]. apply (wlc_utf8_spec [226; 130; 172] Hok). reflexivity.
Defined.
