(* ===== verification/WlcSchema.v ===== *)
(** * Message schemas and values of the Wirelink codec

    The descriptor types of [generated/wirelink/codec/fci_device.c] (lines
    14-44), the values they describe and the field lookup [wlc_find_field].

    A C struct is modelled by the list of its members' slots, in the order of
    the descriptor's fields: an offset into the struct is the position of its
    field.  The [value] and [has] columns keep the member names. *)

From Stdlib Require Import String.
From S2P Require Import Prelude WlcWire.

(** ** Descriptors *)

Inductive wlc_card := WLC_OPTIONAL | WLC_REPEATED | WLC_PACKED.

Inductive wlc_kind :=
| WLC_BOOL | WLC_U8 | WLC_U16 | WLC_U32 | WLC_U64
| WLC_I8 | WLC_I16 | WLC_I32 | WLC_I64
| WLC_F32 | WLC_F64 | WLC_FLOAT32 | WLC_FLOAT64
| WLC_BYTES | WLC_STRING | WLC_ENUM | WLC_MESSAGE.

Inductive wlc_lookup := WLC_LOOKUP_LINEAR | WLC_LOOKUP_DENSE | WLC_LOOKUP_BINARY.

#[global] Instance wlc_card_eq_dec : EqDecision wlc_card.
Proof. solve_decision. Defined.
#[global] Instance wlc_kind_eq_dec : EqDecision wlc_kind.
Proof. solve_decision. Defined.

(** [wlc_field_t]; the [count] and [capacity] columns locate the members of a
    repeated slot and are part of the slot. *)
Record wlc_field_of (D : Type) := Field {
  number : Z;
  card : wlc_card;
  kind : wlc_kind;
  required : Z;
  wire : Z;
  key_size : Z;
  value : string;
  has : string;
  element : Z;
  packed_count : Z;
  max_length : Z;
  key : bytes;
  signed_default : Z;
  unsigned_default : Z;
  string_default : option bytes;
  nested : option D
}.
Arguments Field {D}.
Arguments number {D} _.
Arguments card {D} _.
Arguments kind {D} _.
Arguments required {D} _.
Arguments wire {D} _.
Arguments key_size {D} _.
Arguments value {D} _.
Arguments has {D} _.
Arguments element {D} _.
Arguments packed_count {D} _.
Arguments max_length {D} _.
Arguments key {D} _.
Arguments signed_default {D} _.
Arguments unsigned_default {D} _.
Arguments string_default {D} _.
Arguments nested {D} _.

(** [struct wlc_desc]; [count] is the length of [fields]. *)
#[warnings="-register-all"]
Inductive wlc_desc :=
| Desc (fields : list (wlc_field_of wlc_desc)) (lookup : wlc_lookup).

Abbreviation wlc_field := (wlc_field_of wlc_desc).

Definition fields (d : wlc_desc) : list wlc_field :=
  match d with Desc fs _ => fs end.
Definition lookup_of (d : wlc_desc) : wlc_lookup :=
  match d with Desc _ l => l end.

(** Induction with the nested descriptors of the fields. *)
Definition nested_all (P : wlc_desc -> Prop) (o : option wlc_desc) : Prop :=
  match o with Some d => P d | None => True end.

Fixpoint wlc_desc_nested_ind (P : wlc_desc -> Prop)
  (HP : forall fs l, Forall (fun f => nested_all P (nested f)) fs -> P (Desc fs l))
  (d : wlc_desc) {struct d} : P d :=
  match d with
  | Desc fs l =>
      HP fs l ((fix go fs : Forall (fun f => nested_all P (nested f)) fs :=
        match fs with
        | [] => @List.Forall_nil _ _
        | f :: fs' =>
            @List.Forall_cons _ _ f fs'
              (match nested f as o return nested_all P o with
               | Some d' => wlc_desc_nested_ind P HP d'
               | None => I
               end) (go fs')
        end) fs)
  end.

(** ** Values

    Integers, enums and floats (as bit patterns) are [VInt]; [wl_codec_bytes_t]
    and [wl_codec_string_t] are a data pointer, [None] when null, and a length;
    a nested struct is inlined.  A repeated slot is the caller's storage, null
    or an array, with the count in use and the capacity. *)

Inductive slot_of (V : Type) :=
| SOpt (has : bool) (v : V)
| SPacked (has : bool) (elems : list Z)
| SRep (storage : option (list V)) (count capacity : Z).
Arguments SOpt {V}.
Arguments SPacked {V}.
Arguments SRep {V}.

#[warnings="-register-all"]
Inductive wval :=
| VInt (z : Z)
| VSpan (data : option bytes) (length : Z)
| VMsg (slots : list (slot_of wval)).

Abbreviation slot := (slot_of wval).
Abbreviation wstruct := (list slot).

(** [*(const bool * )(base + f->has)]; repeated slots have no such member and
    are never required. *)
Definition slot_has (s : slot) : bool :=
  match s with SOpt h _ => h | SPacked h _ => h | SRep _ _ _ => true end.

(** ** Field lookup *)

Section find.
Context {D : Type}.
Implicit Types fs : list (wlc_field_of D).

Fixpoint find_linear fs (n : Z) (i : nat) : option nat :=
  match fs with
  | [] => None
  | f :: fs' => if number f =? n then Some i else find_linear fs' n (S i)
  end.

(** [index = (size_t)number - (size_t)d->fields[0].number], modulo 2^64. *)
Definition find_dense fs (n : Z) : option nat :=
  match fs with
  | [] => None
  | f0 :: _ =>
      let index := u64 (n - number f0) in
      if index <? Z.of_nat (length fs) then Some (Z.to_nat index) else None
  end.

(** The loop halves [hi - lo]; [fuel] bounds the number of rounds. *)
Fixpoint find_binary (fuel : nat) fs (n : Z) (lo hi : nat) : option nat :=
  match fuel with
  | O => None
  | S k =>
      if (lo <? hi)%nat then
        let mid := (lo + (hi - lo) / 2)%nat in
        match fs !! mid with
        | None => None
        | Some f =>
            if number f =? n then Some mid
            else if number f <? n then find_binary k fs n (S mid) hi
            else find_binary k fs n lo mid
        end
      else None
  end.

Definition wlc_find_field fs (l : wlc_lookup) (n : Z) : option nat :=
  match l with
  | WLC_LOOKUP_DENSE => find_dense fs n
  | WLC_LOOKUP_BINARY => find_binary (S (length fs)) fs n 0 (length fs)
  | WLC_LOOKUP_LINEAR => find_linear fs n 0
  end.

(** ** Correctness of the lookups *)

Fixpoint increasing (lo : Z) fs : bool :=
  match fs with
  | [] => true
  | f :: fs' => (lo <? number f) && increasing (number f) fs'
  end.

Fixpoint consecutive (n : Z) fs : bool :=
  match fs with
  | [] => true
  | f :: fs' => (number f =? n) && consecutive (n + 1) fs'
  end.

(** What the generator guarantees about a table and its lookup mode. *)
Definition lookup_ok fs (l : wlc_lookup) : bool :=
  increasing 0 fs && forallb (fun f => number f <=? 65535) fs &&
  match l, fs with
  | WLC_LOOKUP_DENSE, f :: _ => consecutive (number f) fs
  | WLC_LOOKUP_DENSE, [] => false
  | _, _ => true
  end.

Lemma increasing_lookup lo fs i f :
  increasing lo fs = true -> fs !! i = Some f -> lo < number f.
Proof.
  revert lo i. induction fs as [|g fs IH]; intros lo [|i]; cbn; try done.
  - by intros [?%Z.ltb_lt _]%andb_prop [= ->].
  - intros [?%Z.ltb_lt Hinc]%andb_prop Hi. specialize (IH _ _ Hinc Hi). lia.
Qed.

Lemma increasing_lt lo fs i j f g :
  increasing lo fs = true -> fs !! i = Some f -> fs !! j = Some g ->
  (i < j)%nat -> number f < number g.
Proof.
  revert lo i j. induction fs as [|h fs IH]; intros lo [|i] [|j]; cbn; try done; try lia.
  - intros [_ Hinc]%andb_prop [= ->] Hj _. by eapply increasing_lookup.
  - intros [_ Hinc]%andb_prop Hi Hj ?. eapply IH; [done..|lia].
Qed.

Lemma increasing_inj lo fs i j f g :
  increasing lo fs = true -> fs !! i = Some f -> fs !! j = Some g ->
  number f = number g -> i = j.
Proof.
  intros Hinc Hi Hj Heq. destruct (lt_eq_lt_dec i j) as [[Hlt|]|Hlt]; [|done|].
  - pose proof (increasing_lt _ _ _ _ _ _ Hinc Hi Hj Hlt). lia.
  - pose proof (increasing_lt _ _ _ _ _ _ Hinc Hj Hi Hlt). lia.
Qed.

Lemma find_linear_some fs n k i :
  find_linear fs n k = Some i ->
  (k <= i)%nat /\ exists f, fs !! (i - k)%nat = Some f /\ number f = n.
Proof.
  revert k. induction fs as [|f fs IH]; intros k; cbn; [done|].
  destruct (Z.eqb_spec (number f) n) as [<-|].
  - intros [= <-]. rewrite Nat.sub_diag. eauto.
  - intros (? & g & Hg & ?)%IH. split; [lia|]. exists g.
    by replace (i - k)%nat with (S (i - S k)) by lia.
Qed.

Lemma find_linear_none fs n k i f :
  find_linear fs n k = None -> fs !! i = Some f -> number f <> n.
Proof.
  revert k i. induction fs as [|g fs IH]; intros k [|i]; cbn; try done;
    destruct (Z.eqb_spec (number g) n); try done.
  - congruence.
  - intros. eauto.
Qed.

Lemma find_linear_complete fs n i f :
  increasing 0 fs = true -> fs !! i = Some f -> number f = n ->
  find_linear fs n 0 = Some i.
Proof.
  intros Hinc Hi Hn. destruct (find_linear fs n 0) as [j|] eqn:Hj.
  - apply find_linear_some in Hj as (_ & g & Hg & Hgn). rewrite Nat.sub_0_r in Hg.
    f_equal. eapply increasing_inj; [done..|congruence].
  - by eapply find_linear_none in Hj.
Qed.
Lemma consecutive_lookup n fs i f :
  consecutive n fs = true -> fs !! i = Some f -> number f = n + Z.of_nat i.
Proof.
  revert n i. induction fs as [|g fs IH]; intros n [|i]; cbn; try done;
    intros [Hg%Z.eqb_eq Hc]%andb_prop Hi.
  - injection Hi as ->. lia.
  - rewrite (IH _ _ Hc Hi). lia.
Qed.

Lemma find_dense_spec fs n f :
  fs !! 0%nat = Some f -> consecutive (number f) fs = true ->
  0 < number f <= 65535 -> 0 <= n <= 65535 -> Z.of_nat (length fs) <= 65535 ->
  find_dense fs n = find_linear fs n 0.
Proof.
  intros Hf Hc Hnf Hn Hlen. destruct fs as [|f0 fs']; [done|]. injection Hf as ->.
  set (fs := f :: fs') in *. unfold find_dense, fs at 1.
  destruct (find_linear fs n 0) as [i|] eqn:Hi.
  - apply find_linear_some in Hi as (_ & g & Hg & Hgn). rewrite Nat.sub_0_r in Hg.
    pose proof (consecutive_lookup _ _ _ _ Hc Hg) as Hnum.
    apply lookup_lt_Some in Hg.
    rewrite wrap_id by (unfold in_u; lia).
    rewrite (proj2 (Z.ltb_lt _ _)) by lia. f_equal. lia.
  - assert (~ (number f <= n < number f + Z.of_nat (length fs))) as Hout.
    { intros Hin. destruct (lookup_lt_is_Some_2 fs (Z.to_nat (n - number f))) as [g Hg]; [lia|].
      eapply find_linear_none in Hi; [|exact Hg].
      pose proof (consecutive_lookup _ _ _ _ Hc Hg). lia. }
    destruct (Z.ltb_spec n (number f)).
    + unfold wrap. rewrite <- (Z.mod_add _ 1) by lia.
      rewrite Z.mod_small by lia. rewrite (proj2 (Z.ltb_ge _ _)) by lia. done.
    + rewrite wrap_id by (unfold in_u; lia).
      rewrite (proj2 (Z.ltb_ge _ _)) by lia. done.
Qed.

Lemma find_binary_spec fs n fuel lo hi :
  increasing 0 fs = true -> (hi <= length fs)%nat -> (hi - lo < fuel)%nat ->
  (forall i f, fs !! i = Some f -> number f = n -> lo <= i < hi)%nat ->
  find_binary fuel fs n lo hi = find_linear fs n 0.
Proof.
  intros Hinc. revert lo hi. induction fuel as [|k IH]; intros lo hi Hhi Hk Hin; [lia|].
  cbn [find_binary]. destruct (Nat.ltb_spec lo hi).
  - pose proof (Nat.div_lt (hi - lo) 2 ltac:(lia) ltac:(lia)) as Hdiv.
    set (mid := (lo + (hi - lo) / 2)%nat). assert (lo <= mid < hi)%nat by lia.
    destruct (lookup_lt_is_Some_2 fs mid) as [f Hf]; [lia|]. rewrite Hf.
    destruct (Z.eqb_spec (number f) n) as [Heq|].
    { symmetry. by eapply find_linear_complete. }
    destruct (Z.ltb_spec (number f) n); apply IH; try lia; intros i g Hg Hgn;
      specialize (Hin i g Hg Hgn).
    + destruct (decide (i <= mid)%nat); [|lia].
      destruct (decide (i = mid)); [congruence|].
      pose proof (increasing_lt _ _ _ _ _ _ Hinc Hg Hf). lia.
    + destruct (decide (mid <= i)%nat); [|lia].
      destruct (decide (i = mid)); [congruence|].
      pose proof (increasing_lt _ _ _ _ _ _ Hinc Hf Hg). lia.
  - destruct (find_linear fs n 0) as [i|] eqn:Hi; [|done].
    apply find_linear_some in Hi as (_ & g & Hg & Hgn). rewrite Nat.sub_0_r in Hg.
    specialize (Hin i g Hg Hgn). lia.
Qed.

(** Every lookup mode the generator chooses finds what a scan finds. *)
Lemma find_field_linear fs l n :
  lookup_ok fs l = true -> Z.of_nat (length fs) <= 65535 -> 0 <= n <= 65535 ->
  wlc_find_field fs l n = find_linear fs n 0.
Proof.
  unfold lookup_ok. intros [[Hinc Hmax]%andb_prop Hl]%andb_prop Hlen Hn.
  destruct l; cbn [wlc_find_field]; [done| |].
  - destruct fs as [|f fs']; [done|]. apply find_dense_spec with f; try done.
    pose proof (increasing_lookup _ _ 0 f Hinc eq_refl).
    apply andb_prop in Hmax as [?%Z.leb_le _]. lia.
  - apply find_binary_spec; [done|lia|lia|].
    intros i f Hf _. apply lookup_lt_Some in Hf. lia.
Qed.

Lemma find_field_complete fs l i f :
  lookup_ok fs l = true -> Z.of_nat (length fs) <= 65535 -> fs !! i = Some f ->
  wlc_find_field fs l (number f) = Some i.
Proof.
  intros Hl Hlen Hi. pose proof Hl as [[Hinc Hmax]%andb_prop _]%andb_prop.
  rewrite forallb_forall in Hmax.
  pose proof (increasing_lookup _ _ _ _ Hinc Hi).
  assert (number f <= 65535).
  { apply Z.leb_le, Hmax, list_elem_of_In. by eapply list_elem_of_lookup_2. }
  rewrite find_field_linear by (done || lia). by eapply find_linear_complete.
Qed.

Lemma find_field_some fs l n i :
  lookup_ok fs l = true -> Z.of_nat (length fs) <= 65535 -> 0 <= n <= 65535 ->
  wlc_find_field fs l n = Some i -> exists f, fs !! i = Some f /\ number f = n.
Proof.
  intros Hl Hlen Hn. rewrite find_field_linear by done.
  intros (_ & f & Hf & ?)%find_linear_some. rewrite Nat.sub_0_r in Hf. eauto.
Qed.
End find.
