(* ===== verification/WlcCodec.v ===== *)
(** * The table-driven codec

    [generated/wirelink/codec/fci_device.c], lines 104-606: measuring,
    clearing, emitting, encoding, skipping and decoding a value under a
    descriptor.

    The functions recurse over descriptors.  Each loop over the fields is a
    definition of a section whose variables are the recursive calls on the
    nested descriptors; the fixpoints at the end of each section tie the knot.
    [size_t n] accumulators are threaded explicitly. *)

From Stdlib Require Import String.
From S2P Require Import Prelude WlcWire WlcSchema.

Definition wlc_packed_bytes (f : wlc_field) : codec Z :=
  if negb (packed_count f =? 0) && (element f >? SIZE_MAX / packed_count f)
  then Err WL_CODEC_ERR_OVERFLOW
  else Ok (element f * packed_count f).

(** ** Measuring *)

Section measure.
(** [wlc_measure_impl] on a nested descriptor. *)
Variable measure_nested : wlc_desc -> wstruct -> codec Z.
Variable validated : bool.

Definition span_body (f : wlc_field) (utf8 : bool) (data : option bytes) (length : Z)
    : codec Z :=
  if negb (max_length f =? 0) && (length >? max_length f) then Err WL_CODEC_ERR_INVALID_VALUE
  else if negb (length =? 0) && (if data is None then true else false)
  then Err WL_CODEC_ERR_INVALID_VALUE
  else if utf8 && negb validated && negb (wlc_utf8 (take (Z.to_nat length) (default [] data)))
  then Err WL_CODEC_ERR_UTF8
  else match wlc_add 0 (wlc_vsize length) with
  | Err _ => Err WL_CODEC_ERR_OVERFLOW
  | Ok n => wlc_add n length
  end.

Definition wlc_body (f : wlc_field) (p : wval) : codec Z :=
  match kind f, p with
  | WLC_BOOL, VInt v =>
      if negb (v =? 0) && negb (v =? 1) then Err WL_CODEC_ERR_INVALID_VALUE else Ok 1
  | (WLC_U8 | WLC_U16 | WLC_U32 | WLC_U64), VInt v => Ok (wlc_vsize v)
  | (WLC_I8 | WLC_I16 | WLC_I32 | WLC_ENUM), VInt v => Ok (wlc_vsize (wlc_z32 v))
  | WLC_I64, VInt v => Ok (wlc_vsize (wlc_z64 v))
  | (WLC_F32 | WLC_FLOAT32), VInt _ => Ok 4
  | (WLC_F64 | WLC_FLOAT64), VInt _ => Ok 8
  | WLC_BYTES, VSpan data length => span_body f false data length
  | WLC_STRING, VSpan data length => span_body f true data length
  | WLC_MESSAGE, VMsg slots =>
      match nested f with
      | None => Err WL_CODEC_ERR_INVALID_VALUE
      | Some d => child ← measure_nested d slots; wlc_add (wlc_vsize child) child
      end
  | _, _ => Err WL_CODEC_ERR_INVALID_VALUE
  end.

(** The values of a repeated slot, in order, added to [n]. *)
Fixpoint measure_elements (f : wlc_field) (vs : list wval) (n : Z) : codec Z :=
  match vs with
  | [] => Ok n
  | p :: vs' =>
      body ← wlc_body f p;
      n ← wlc_add n (key_size f);
      n ← wlc_add n body;
      measure_elements f vs' n
  end.

(** One round of the loop over the fields. *)
Definition measure_field (f : wlc_field) (s : slot) (n : Z) : codec Z :=
  match card f, s with
  | WLC_PACKED, SPacked has _ =>
      if negb has then
        if negb (required f =? 0) then Err WL_CODEC_ERR_MISSING_REQUIRED_FIELD else Ok n
      else
        bytes ← wlc_packed_bytes f;
        n ← wlc_add n (key_size f);
        n ← wlc_add n (wlc_vsize bytes);
        wlc_add n bytes
  | WLC_OPTIONAL, SOpt has v =>
      if negb has then
        if negb (required f =? 0) then Err WL_CODEC_ERR_MISSING_REQUIRED_FIELD else Ok n
      else measure_elements f [v] n
  | WLC_REPEATED, SRep storage count capacity =>
      if (negb (count =? 0) && (if storage is None then true else false))
         || (count >? capacity)
      then Err WL_CODEC_ERR_INVALID_VALUE
      else measure_elements f (take (Z.to_nat count) (default [] storage)) n
  | _, _ => Err WL_CODEC_ERR_INVALID_VALUE
  end.

Fixpoint measure_fields (fs : list wlc_field) (slots : wstruct) (n : Z) : codec Z :=
  match fs, slots with
  | [], _ => Ok n
  | f :: fs', s :: slots' => n ← measure_field f s n; measure_fields fs' slots' n
  | _ :: _, [] => Err WL_CODEC_ERR_INVALID_VALUE
  end.
End measure.

Fixpoint wlc_measure_impl (validated : bool) (d : wlc_desc) (slots : wstruct) : codec Z :=
  match d with
  | Desc fs _ => measure_fields (wlc_measure_impl validated) validated fs slots 0
  end.

Definition wlc_measure := wlc_measure_impl false.
Definition wlc_measure_validated := wlc_measure_impl true.

(** ** Clearing

    The struct is overwritten up to the storage and capacity of its repeated
    members, so the old slots only matter there. *)

Definition scalar_default (f : wlc_field) : wval :=
  match kind f with
  | WLC_STRING => VSpan (string_default f) (unsigned_default f)
  | WLC_BYTES => VSpan None 0
  | WLC_FLOAT32 | WLC_FLOAT64 => VInt 0
  | WLC_BOOL => VInt (if unsigned_default f =? 0 then 0 else 1)
  | WLC_I8 => VInt (swrap 8 (signed_default f))
  | WLC_I16 => VInt (swrap 16 (signed_default f))
  | WLC_I32 | WLC_ENUM => VInt (swrap 32 (signed_default f))
  | WLC_I64 => VInt (signed_default f)
  | WLC_U8 => VInt (u8 (unsigned_default f))
  | WLC_U16 => VInt (u16 (unsigned_default f))
  | WLC_U32 | WLC_F32 => VInt (u32 (unsigned_default f))
  | WLC_U64 | WLC_F64 => VInt (unsigned_default f)
  | WLC_MESSAGE => VMsg []
  end.

Section clear.
Variable clear_nested : wlc_desc -> wstruct -> wstruct.

Definition clear_slot (f : wlc_field) (old : option slot) : slot :=
  match card f with
  | WLC_REPEATED =>
      match old with
      | Some (SRep storage _ capacity) => SRep storage 0 capacity
      | _ => SRep None 0 0
      end
  | WLC_PACKED => SPacked false (repeat 0 (Z.to_nat (packed_count f)))
  | WLC_OPTIONAL =>
      SOpt false
        match kind f, nested f with
        | WLC_MESSAGE, Some d =>
            VMsg (clear_nested d match old with Some (SOpt _ (VMsg vs)) => vs | _ => [] end)
        | _, _ => scalar_default f
        end
  end.

Fixpoint clear_fields (fs : list wlc_field) (slots : wstruct) : wstruct :=
  match fs with
  | [] => []
  | f :: fs' => clear_slot f (head slots) :: clear_fields fs' (tail slots)
  end.
End clear.

Fixpoint wlc_clear (d : wlc_desc) (slots : wstruct) : wstruct :=
  match d with Desc fs _ => clear_fields wlc_clear fs slots end.

(** ** Emitting

    The emitter writes to a sink; the file has it twice, once over the output
    cursor (lines 284-398) and once over the hash state (lines 622-746).  A
    failing emission has written a prefix, so the sink is returned with the
    status. *)

Class Sink (S : Type) := {
  put_bytes : S -> bytes -> S;
  put_key : S -> wlc_field -> S
}.

(** [wlc_put_key]: one byte, and the second and third if the key has them. *)
Definition wlc_key_bytes (f : wlc_field) : bytes :=
  take (if key_size f >? 1 then if key_size f >? 2 then 3 else 2 else 1) (key f).

(** [uint8_t *out]: the bytes stored so far. *)
#[global] Instance cursor_sink : Sink bytes := {
  put_bytes out l := (out ++ l)%list;
  put_key out f := (out ++ wlc_key_bytes f)%list
}.

Section emit.
Context {S : Type} `{!Sink S}.
Variable measure_nested : wlc_desc -> wstruct -> codec Z.
Variable emit_nested : wlc_desc -> wstruct -> S -> wl_codec_status * S.

Definition putv (out : S) (v : Z) : S := put_bytes out (wlc_putv v).
Definition put32 (out : S) (v : Z) : S := put_bytes out (wlc_put32 v).
Definition put64 (out : S) (v : Z) : S := put_bytes out (wlc_put64 v).

(** [wlc_copy_span]: nothing is read when the length is zero. *)
Definition copy_span (out : S) (data : option bytes) (length : Z) : S :=
  if negb (length =? 0) then put_bytes out (take (Z.to_nat length) (default [] data)) else out.

Definition emit_fixed (k : wlc_kind) (v : Z) (out : S) : wl_codec_status * S :=
  match k with
  | WLC_F32 | WLC_FLOAT32 => (WL_CODEC_OK, put32 out v)
  | WLC_F64 | WLC_FLOAT64 => (WL_CODEC_OK, put64 out v)
  | _ => (WL_CODEC_ERR_INVALID_VALUE, out)
  end.

Definition emit_value (f : wlc_field) (p : wval) (out : S) : wl_codec_status * S :=
  match kind f, p with
  | (WLC_BOOL | WLC_U8 | WLC_U16 | WLC_U32 | WLC_U64), VInt v => (WL_CODEC_OK, putv out v)
  | (WLC_I8 | WLC_I16 | WLC_I32 | WLC_ENUM), VInt v => (WL_CODEC_OK, putv out (wlc_z32 v))
  | WLC_I64, VInt v => (WL_CODEC_OK, putv out (wlc_z64 v))
  | (WLC_F32 | WLC_F64 | WLC_FLOAT32 | WLC_FLOAT64), VInt v => emit_fixed (kind f) v out
  | (WLC_BYTES | WLC_STRING), VSpan data length =>
      (WL_CODEC_OK, copy_span (putv out length) data length)
  | WLC_MESSAGE, VMsg slots =>
      match nested f with
      | None => (WL_CODEC_ERR_INVALID_VALUE, out)
      | Some d =>
          match measure_nested d slots with
          | Err s => (s, out)
          | Ok child => emit_nested d slots (putv out child)
          end
      end
  | _, _ => (WL_CODEC_ERR_INVALID_VALUE, out)
  end.

Definition emit_packed (f : wlc_field) (elems : list Z) (out : S) : wl_codec_status * S :=
  match wlc_packed_bytes f with
  | Err s => (s, out)
  | Ok bytes =>
      let out := putv out bytes in
      match kind f with
      | WLC_F32 | WLC_FLOAT32 =>
          (WL_CODEC_OK, foldl put32 out (take (Z.to_nat (packed_count f)) elems))
      | WLC_F64 | WLC_FLOAT64 =>
          (WL_CODEC_OK, foldl put64 out (take (Z.to_nat (packed_count f)) elems))
      | _ => (WL_CODEC_ERR_INVALID_VALUE, out)
      end
  end.

Fixpoint emit_elements (f : wlc_field) (vs : list wval) (out : S) : wl_codec_status * S :=
  match vs with
  | [] => (WL_CODEC_OK, out)
  | p :: vs' =>
      match emit_value f p (put_key out f) with
      | (WL_CODEC_OK, out) => emit_elements f vs' out
      | e => e
      end
  end.

Definition emit_field (f : wlc_field) (s : slot) (out : S) : wl_codec_status * S :=
  match card f, s with
  | WLC_PACKED, SPacked has elems =>
      if negb has then (WL_CODEC_OK, out) else emit_packed f elems (put_key out f)
  | WLC_OPTIONAL, SOpt has v => emit_elements f (if has then [v] else []) out
  | WLC_REPEATED, SRep storage count _ =>
      emit_elements f (take (Z.to_nat count) (default [] storage)) out
  | _, _ => (WL_CODEC_ERR_INVALID_VALUE, out)
  end.

Fixpoint emit_fields (fs : list wlc_field) (slots : wstruct) (out : S)
    : wl_codec_status * S :=
  match fs, slots with
  | [], _ => (WL_CODEC_OK, out)
  | f :: fs', s :: slots' =>
      match emit_field f s out with
      | (WL_CODEC_OK, out) => emit_fields fs' slots' out
      | e => e
      end
  | _ :: _, [] => (WL_CODEC_ERR_INVALID_VALUE, out)
  end.
End emit.

Fixpoint wlc_emit {S} `{!Sink S} (measure : wlc_desc -> wstruct -> codec Z)
    (d : wlc_desc) (slots : wstruct) (out : S) : wl_codec_status * S :=
  match d with Desc fs _ => emit_fields measure (wlc_emit measure) fs slots out end.

(** [wlc_emit_fields]: over the output cursor, nested messages measured by
    [wlc_measure]. *)
Definition wlc_emit_fields (d : wlc_desc) (slots : wstruct) (out : bytes)
    : wl_codec_status * bytes :=
  wlc_emit wlc_measure d slots out.

(** [wlc_encode] with non-null pointers: the bytes stored at [out] (at most
    [cap] of them may be) and, on success, [*length]. *)
Definition wlc_encode (d : wlc_desc) (slots : wstruct) (cap : Z) : codec Z * bytes :=
  match wlc_measure d slots with
  | Err s => (Err s, [])
  | Ok n =>
      if cap <? n then (Err WL_CODEC_ERR_CAPACITY, [])
      else match wlc_emit_fields d slots [] with
      | (WL_CODEC_OK, out) => (Ok n, out)
      | (s, out) => (Err s, out)
      end
  end.

(** ** Decoding *)

Definition wlc_skip (w : Z) (rest : bytes) : codec bytes :=
  if w =? 0 then '(_, rest) ← wlc_getv rest; Ok rest
  else if w =? 1 then
    if Z.of_nat (length rest) <? 8 then Err WL_CODEC_ERR_MALFORMED else Ok (drop 8 rest)
  else if w =? 5 then
    if Z.of_nat (length rest) <? 4 then Err WL_CODEC_ERR_MALFORMED else Ok (drop 4 rest)
  else if negb (w =? 2) then Err WL_CODEC_ERR_MALFORMED
  else
    '(len, rest) ← wlc_getv rest;
    if len >? Z.of_nat (length rest) then Err WL_CODEC_ERR_MALFORMED
    else Ok (drop (Z.to_nat len) rest).

Definition wlc_read_fixed (k : wlc_kind) (rest : bytes) : codec (Z * bytes) :=
  let n := match k with WLC_F32 | WLC_FLOAT32 => 4%nat | _ => 8%nat end in
  if (length rest <? n)%nat then Err WL_CODEC_ERR_MALFORMED
  else
    let bits := wlc_be (take n rest) in
    match k with
    | WLC_F32 | WLC_FLOAT32 => Ok (u32 bits, drop n rest)
    | WLC_F64 | WLC_FLOAT64 => Ok (bits, drop n rest)
    | _ => Err WL_CODEC_ERR_INVALID_VALUE
    end.

(** The integer kinds: the value a varint stands for. *)
Definition read_varint_value (k : wlc_kind) (v : Z) : codec Z :=
  match k with
  | WLC_BOOL => if v >? 1 then Err WL_CODEC_ERR_INVALID_VALUE
                else Ok (if negb (v =? 0) then 1 else 0)
  | WLC_U8 => if v >? 255 then Err WL_CODEC_ERR_OVERFLOW else Ok (u8 v)
  | WLC_U16 => if v >? 65535 then Err WL_CODEC_ERR_OVERFLOW else Ok (u16 v)
  | WLC_U32 => if v >? 4294967295 then Err WL_CODEC_ERR_OVERFLOW else Ok (u32 v)
  | WLC_U64 => Ok v
  | WLC_I8 => if v >? 255 then Err WL_CODEC_ERR_OVERFLOW else Ok (swrap 8 (wlc_uz32 (u32 v)))
  | WLC_I16 => if v >? 65535 then Err WL_CODEC_ERR_OVERFLOW else Ok (swrap 16 (wlc_uz32 (u32 v)))
  | WLC_I32 | WLC_ENUM =>
      if v >? 4294967295 then Err WL_CODEC_ERR_OVERFLOW else Ok (wlc_uz32 (u32 v))
  | WLC_I64 => Ok (wlc_uz64 v)
  | _ => Err WL_CODEC_ERR_INVALID_VALUE
  end.

Fixpoint read_words (size count : nat) (rest : bytes) : list Z * bytes :=
  match count with
  | O => ([], rest)
  | S k => let '(ws, rest') := read_words size k (drop size rest) in
           (wlc_be (take size rest) :: ws, rest')
  end.

Definition wlc_read_packed (f : wlc_field) (rest : bytes) : codec (list Z * bytes) :=
  '(encoded_bytes, rest) ← wlc_getv rest;
  expected_bytes ← wlc_packed_bytes f;
  if negb (encoded_bytes =? expected_bytes) || (expected_bytes >? Z.of_nat (length rest))
  then Err WL_CODEC_ERR_MALFORMED
  else match kind f with
  | WLC_F32 | WLC_FLOAT32 => Ok (read_words 4 (Z.to_nat (packed_count f)) rest)
  | WLC_F64 | WLC_FLOAT64 => Ok (read_words 8 (Z.to_nat (packed_count f)) rest)
  | _ => Err WL_CODEC_ERR_INVALID_VALUE
  end.

(** A decoder of a nested message into the struct it is given. *)
Definition nested_decoder := bytes -> wstruct -> wl_codec_status * wstruct.

(** [wlc_read_value] into the member that holds [old]: the remaining input or
    an error, and the member afterwards. *)
Definition wlc_read_value (f : wlc_field) (dec : option nested_decoder) (rest : bytes)
    (old : wval) : codec bytes * wval :=
  match kind f with
  | WLC_F32 | WLC_F64 | WLC_FLOAT32 | WLC_FLOAT64 =>
      match wlc_read_fixed (kind f) rest with
      | Ok (v, rest) => (Ok rest, VInt v)
      | Err s => (Err s, old)
      end
  | WLC_BYTES | WLC_STRING | WLC_MESSAGE =>
      match wlc_getv rest with
      | Err s => (Err s, old)
      | Ok (v, rest) =>
          if bool_decide (kind f <> WLC_MESSAGE) && negb (max_length f =? 0)
             && (v >? max_length f)
          then (Err WL_CODEC_ERR_INVALID_VALUE, old)
          else if v >? Z.of_nat (length rest) then (Err WL_CODEC_ERR_MALFORMED, old)
          else
            let payload := take (Z.to_nat v) rest in
            let rest := drop (Z.to_nat v) rest in
            match kind f with
            | WLC_BYTES => (Ok rest, VSpan (Some payload) v)
            | WLC_STRING =>
                if negb (wlc_utf8 payload) then (Err WL_CODEC_ERR_UTF8, old)
                else (Ok rest, VSpan (Some payload) v)
            | _ =>
                match dec with
                | None => (Err WL_CODEC_ERR_INVALID_VALUE, old)
                | Some dec =>
                    match dec payload match old with VMsg vs => vs | _ => [] end with
                    | (WL_CODEC_OK, vs) => (Ok rest, VMsg vs)
                    | (s, vs) => (Err s, VMsg vs)
                    end
                end
            end
      end
  | _ =>
      match wlc_getv rest with
      | Err s => (Err s, old)
      | Ok (v, rest) =>
          match read_varint_value (kind f) v with
          | Ok z => (Ok rest, VInt z)
          | Err s => (Err s, old)
          end
      end
  end.

(** A field that was found: the member is read in place. *)
Definition decode_slot (f : wlc_field) (dec : option nested_decoder) (rest : bytes) (s : slot)
    : codec bytes * slot :=
  match card f, s with
  | WLC_PACKED, SPacked has elems =>
      if has then (Err WL_CODEC_ERR_DUPLICATE_FIELD, s)
      else match wlc_read_packed f rest with
      | Err e => (Err e, s)
      | Ok (elems, rest) => (Ok rest, SPacked true elems)
      end
  | WLC_OPTIONAL, SOpt has old =>
      if has then (Err WL_CODEC_ERR_DUPLICATE_FIELD, s)
      else match wlc_read_value f dec rest old with
      | (Ok rest, v) => (Ok rest, SOpt true v)
      | (Err e, v) => (Err e, SOpt false v)
      end
  | WLC_REPEATED, SRep storage count capacity =>
      if count >=? capacity then (Err WL_CODEC_ERR_CAPACITY, s)
      else match storage with
      | None => (Err WL_CODEC_ERR_INVALID_VALUE, s)
      | Some vs =>
          let i := Z.to_nat count in
          match wlc_read_value f dec rest (default (VMsg []) (vs !! i)) with
          | (Ok rest, v) => (Ok rest, SRep (Some (<[i:=v]> vs)) (count + 1) capacity)
          | (Err e, v) => (Err e, SRep (Some (<[i:=v]> vs)) count capacity)
          end
      end
  | _, _ => (Err WL_CODEC_ERR_INVALID_VALUE, s)
  end.

Section decode.
Variable fs : list wlc_field.
Variable lookup : wlc_lookup.
Variable decs : list (option nested_decoder).

(** [next] if it points at a field of this number, else the lookup. *)
Definition select_field (next : nat) (n : Z) : option nat :=
  match fs !! next with
  | Some f => if number f =? n then Some next else wlc_find_field fs lookup n
  | None => wlc_find_field fs lookup n
  end.

(** One round of the loop after its key: what is left of the input and the
    new hint, and the struct. *)
Definition decode_field (n w : Z) (rest : bytes) (next : nat) (out : wstruct)
    : codec (bytes * nat) * wstruct :=
  match select_field next n with
  | None =>
      match wlc_skip w rest with
      | Ok rest => (Ok (rest, next), out)
      | Err s => (Err s, out)
      end
  | Some i =>
      match fs !! i, out !! i with
      | Some f, Some s =>
          if negb (w =? wire f) then (Err WL_CODEC_ERR_WIRE_TYPE, out)
          else
            let next := if bool_decide (card f = WLC_REPEATED) then i else S i in
            match decode_slot f (default None (decs !! i)) rest s with
            | (Ok rest, s) => (Ok (rest, next), <[i:=s]> out)
            | (Err e, s) => (Err e, <[i:=s]> out)
            end
      | _, _ => (Err WL_CODEC_ERR_INVALID_VALUE, out)
      end
  end.

Definition decode_key (key : Z) : codec (Z * Z) :=
  let raw_number := Z.shiftr key 3 in
  let w := Z.land key 7 in
  if (raw_number =? 0) || (raw_number >? 65535) ||
     (negb (w =? 0) && negb (w =? 1) && negb (w =? 2) && negb (w =? 5))
  then Err WL_CODEC_ERR_MALFORMED
  else Ok (raw_number, w).

(** [for (size_t at = 0U; at < n;)]; every round consumes the key, so the
    length of the input is enough fuel. *)
Fixpoint decode_loop (fuel : nat) (rest : bytes) (next : nat) (out : wstruct)
    : wl_codec_status * wstruct :=
  match rest with
  | [] => (WL_CODEC_OK, out)
  | _ :: _ =>
      match fuel with
      | O => (WL_CODEC_ERR_MALFORMED, out)
      | S k =>
          match wlc_getv rest with
          | Err s => (s, out)
          | Ok (key, rest) =>
              match decode_key key with
              | Err s => (s, out)
              | Ok (n, w) =>
                  match decode_field n w rest next out with
                  | (Ok (rest, next), out) => decode_loop k rest next out
                  | (Err s, out) => (s, out)
                  end
              end
          end
      end
  end.

Definition missing_required (out : wstruct) : bool :=
  existsb (fun '(f, s) => negb (required f =? 0) && negb (slot_has s)) (zip fs out).

Definition decode_body (input : bytes) (out : wstruct) : wl_codec_status * wstruct :=
  match decode_loop (length input) input 0 out with
  | (WL_CODEC_OK, out) =>
      if missing_required out then (WL_CODEC_ERR_MISSING_REQUIRED_FIELD, out)
      else (WL_CODEC_OK, out)
  | e => e
  end.
End decode.

(** [wlc_decode] with non-null pointers. *)
Fixpoint wlc_decode (d : wlc_desc) (input : bytes) (out : wstruct) {struct d}
    : wl_codec_status * wstruct :=
  match d with
  | Desc fs l =>
      let decs := map (fun f => match nested f with Some d' => Some (wlc_decode d') | None => None end) fs in
      decode_body fs l decs input (wlc_clear d out)
  end.

(** [*_encoded_size]. *)
Definition wlc_encoded_size (d : wlc_desc) (slots : wstruct) : Z :=
  match wlc_measure d slots with Ok n => n | Err _ => SIZE_MAX end.
