(* ===== verification/WlcHash.v ===== *)
(** * Message fingerprints

    [generated/wirelink/codec/fci_device.c], lines 606-746: the hash sink of
    the canonical emitter, and the fingerprint that the API of every message
    computes from it. *)

From Stdlib Require Import String.
From S2P Require Import Prelude WlcWire WlcSchema WlcCodec.

Record wlc_hash_state := HashState {
  hash : Z;
  length_ : Z;
  status : wl_codec_status
}.

Definition FNV_PRIME : Z := 1099511628211.

(** [hash = (hash ^ bytes[i]) * UINT64_C(0x100000001b3)]. *)
Definition fnv_step (h b : Z) : Z := u64 (Z.lxor h b * FNV_PRIME).

Definition wlc_hash_copy_span (out : wlc_hash_state) (l : bytes) : wlc_hash_state :=
  match status out with
  | WL_CODEC_OK =>
      match wlc_add (length_ out) (Z.of_nat (length l)) with
      | Ok n => HashState (foldl fnv_step (hash out) l) n WL_CODEC_OK
      | Err s => HashState (hash out) (length_ out) s
      end
  | _ => out
  end.

Definition wlc_hash_put_key (out : wlc_hash_state) (f : wlc_field) : wlc_hash_state :=
  wlc_hash_copy_span out (take (Z.to_nat (key_size f)) (key f)).

#[global] Instance hash_sink : Sink wlc_hash_state := {
  put_bytes := wlc_hash_copy_span;
  put_key := wlc_hash_put_key
}.

(** Nested messages of the hash emitter are measured as validated. *)
Definition wlc_hash_emit_fields (d : wlc_desc) (slots : wstruct) (out : wlc_hash_state)
    : wl_codec_status * wlc_hash_state :=
  wlc_emit wlc_measure_validated d slots out.

(** [*_wlc_detail_fingerprint]: the new [*hash] and [*length]. *)
Definition wlc_fingerprint (d : wlc_desc) (slots : wstruct) (seed : Z) : codec (Z * Z) :=
  match wlc_hash_emit_fields d slots (HashState seed 0 WL_CODEC_OK) with
  | (WL_CODEC_OK, state) =>
      match status state with
      | WL_CODEC_OK => Ok (hash state, length_ state)
      | s => Err s
      end
  | (s, _) => Err s
  end.
