(* ===== verification/WlcRoundtrip.v ===== *)
(** * What the codec computes

    The reference semantics of the codec and the theorems that relate
    [WlcCodec.v] and [WlcHash.v] to it.

    [wf_desc] is what the generator guarantees about a table, [valid] what the C
    types guarantee about a struct.  [enc] is the encoding the tables describe:
    the fields that are present, in order, each its key and its value. *)

From Stdlib Require Import String.
From S2P Require Import Prelude WlcWire WlcSchema WlcCodec WlcHash.

(** ** Well-formed tables *)

Definition between (lo hi z : Z) : bool := (lo <=? z) && (z <? hi).

(** [between_u w]: an unsigned, [between_s w] a signed integer of [w] bits. *)
Definition between_u (w z : Z) : bool := between 0 (2 ^ w) z.
Definition between_s (w z : Z) : bool := between (- 2 ^ (w - 1)) (2 ^ (w - 1)) z.

Lemma between_u_spec w z : between_u w z = true <-> in_u w z.
Proof. unfold between_u, between, in_u. rewrite andb_true_iff, Z.leb_le, Z.ltb_lt. done. Qed.
Lemma between_s_spec w z : between_s w z = true <-> in_s w z.
Proof. unfold between_s, between, in_s. rewrite andb_true_iff, Z.leb_le, Z.ltb_lt. done. Qed.

Definition bytes_okb (l : bytes) : bool := forallb (between_u 8) l.

Lemma forallb_Forall {A} (P : A -> bool) (Q : A -> Prop) l :
  (forall x, P x = true <-> Q x) -> forallb P l = true <-> Forall Q l.
Proof.
  intros HP. rewrite forallb_forall, List.Forall_forall.
  split; intros H x Hx; apply HP; auto.
Qed.

Lemma bytes_okb_spec l : bytes_okb l = true <-> bytes_ok l.
Proof. apply forallb_Forall. intros b. apply between_u_spec. Qed.

(** The wire type of a value of this kind. *)
Definition wire_of (k : wlc_kind) : Z :=
  match k with
  | WLC_F32 | WLC_FLOAT32 => 5
  | WLC_F64 | WLC_FLOAT64 => 1
  | WLC_BYTES | WLC_STRING | WLC_MESSAGE => 2
  | _ => 0
  end.

Definition wf_field (wf_nested : wlc_desc -> bool) (f : wlc_field) : bool :=
  between 1 4 (key_size f) && bytes_okb (key f) && (length (key f) =? 3)%nat &&
  bool_decide (take (Z.to_nat (key_size f)) (key f) = wlc_putv (number f * 8 + wire f)) &&
  (0 <=? max_length f) && between_s 64 (signed_default f) && between_u 64 (unsigned_default f) &&
  match card f with
  | WLC_OPTIONAL =>
      (wire f =? wire_of (kind f)) &&
      match kind f, nested f with
      | WLC_MESSAGE, Some d => wf_nested d
      | WLC_MESSAGE, None => false
      | WLC_STRING, _ => bool_decide (string_default f = None) && (unsigned_default f =? 0)
      | _, _ => true
      end
  | WLC_PACKED =>
      (wire f =? 2) && between 0 65536 (packed_count f) &&
      match kind f with
      | WLC_F32 | WLC_FLOAT32 => element f =? 4
      | WLC_F64 | WLC_FLOAT64 => element f =? 8
      | _ => false
      end
  | WLC_REPEATED => false
  end.

(** No schema of the device protocol has a repeated field. *)
Fixpoint wf_desc (d : wlc_desc) : bool :=
  match d with
  | Desc fs l =>
      lookup_ok fs l && (Z.of_nat (length fs) <=? 65535) && forallb (wf_field wf_desc) fs
  end.

(** ** Structs of a table's type *)

Section valid.
Variable valid_nested : wlc_desc -> wstruct -> bool.

Definition valid_value (f : wlc_field) (v : wval) : bool :=
  match kind f, v with
  | WLC_BOOL, VInt z => between_u 1 z
  | WLC_U8, VInt z => between_u 8 z
  | WLC_U16, VInt z => between_u 16 z
  | (WLC_U32 | WLC_F32 | WLC_FLOAT32), VInt z => between_u 32 z
  | (WLC_U64 | WLC_F64 | WLC_FLOAT64), VInt z => between_u 64 z
  | WLC_I8, VInt z => between_s 8 z
  | WLC_I16, VInt z => between_s 16 z
  | (WLC_I32 | WLC_ENUM), VInt z => between_s 32 z
  | WLC_I64, VInt z => between_s 64 z
  | (WLC_BYTES | WLC_STRING), VSpan None len => between_u 64 len
  | (WLC_BYTES | WLC_STRING), VSpan (Some data) len =>
      between_u 64 len && bytes_okb data && (Z.of_nat (length data) =? len)
  | WLC_MESSAGE, VMsg vs =>
      match nested f with Some d => valid_nested d vs | None => false end
  | _, _ => false
  end.

Definition valid_slot (f : wlc_field) (s : slot) : bool :=
  match card f, s with
  | WLC_OPTIONAL, SOpt _ v => valid_value f v
  | WLC_PACKED, SPacked _ elems =>
      (Z.of_nat (length elems) =? packed_count f) &&
      forallb (between_u (8 * element f)) elems
  | _, _ => false
  end.

Fixpoint valid_fields (fs : list wlc_field) (slots : wstruct) : bool :=
  match fs, slots with
  | [], [] => true
  | f :: fs', s :: slots' => valid_slot f s && valid_fields fs' slots'
  | _, _ => false
  end.
End valid.

Fixpoint valid (d : wlc_desc) (slots : wstruct) : bool :=
  match d with Desc fs _ => valid_fields valid fs slots end.

(** ** The reference encoding *)

Section enc.
Variable enc_nested : wlc_desc -> wstruct -> bytes.

Definition prefixed (l : bytes) : bytes := wlc_putv (Z.of_nat (length l)) ++ l.

Definition enc_value (f : wlc_field) (v : wval) : bytes :=
  match v with
  | VInt z =>
      match kind f with
      | WLC_I8 | WLC_I16 | WLC_I32 | WLC_ENUM => wlc_putv (zz 32 z)
      | WLC_I64 => wlc_putv (zz 64 z)
      | WLC_F32 | WLC_FLOAT32 => wlc_put32 z
      | WLC_F64 | WLC_FLOAT64 => wlc_put64 z
      | _ => wlc_putv z
      end
  | VSpan data _ => prefixed (default [] data)
  | VMsg vs => prefixed (match nested f with Some d => enc_nested d vs | None => [] end)
  end.

Definition enc_word (f : wlc_field) (z : Z) : bytes :=
  if element f =? 4 then wlc_put32 z else wlc_put64 z.

Definition enc_slot (f : wlc_field) (s : slot) : bytes :=
  match s with
  | SOpt true v => wlc_putv (number f * 8 + wire f) ++ enc_value f v
  | SPacked true elems =>
      wlc_putv (number f * 8 + wire f) ++ prefixed (concat (map (enc_word f) elems))
  | _ => []
  end.

Fixpoint enc_fields (fs : list wlc_field) (slots : wstruct) : bytes :=
  match fs, slots with
  | f :: fs', s :: slots' => enc_slot f s ++ enc_fields fs' slots'
  | _, _ => []
  end.
End enc.

Fixpoint enc (d : wlc_desc) (slots : wstruct) : bytes :=
  match d with Desc fs _ => enc_fields enc fs slots end.

(** ** Canonical structs

    What a decoder stores for a struct: absent members are cleared and spans
    point into the input. *)

Section canon.
Variable canon_nested : wlc_desc -> wstruct -> wstruct.

Definition canon_value (f : wlc_field) (v : wval) : wval :=
  match v with
  | VInt z => VInt z
  | VSpan data len => VSpan (Some (default [] data)) len
  | VMsg vs => VMsg (match nested f with Some d => canon_nested d vs | None => vs end)
  end.

Definition canon_slot (f : wlc_field) (s : slot) : slot :=
  match s with
  | SOpt true v => SOpt true (canon_value f v)
  | SPacked true elems => SPacked true elems
  | _ => clear_slot wlc_clear f None
  end.

Fixpoint canon_fields (fs : list wlc_field) (slots : wstruct) : wstruct :=
  match fs, slots with
  | f :: fs', s :: slots' => canon_slot f s :: canon_fields fs' slots'
  | _, _ => []
  end.
End canon.

Fixpoint canon (d : wlc_desc) (slots : wstruct) : wstruct :=
  match d with Desc fs _ => canon_fields canon fs slots end.

(** ** Inversion of the well-formedness conditions *)

Lemma wlc_add_ok a b n : wlc_add a b = Ok n <-> n = a + b /\ a + b <= SIZE_MAX.
Proof.
  unfold wlc_add. rewrite Z.gtb_ltb. destruct (Z.ltb_spec (SIZE_MAX - a) b);
    (split; [intros [=]|intros [-> ?]]); (done || lia || (split; lia) || (f_equal; lia)).
Qed.

Lemma between_spec lo hi z : between lo hi z = true <-> lo <= z < hi.
Proof. unfold between. rewrite andb_true_iff, Z.leb_le, Z.ltb_lt. done. Qed.

Record field_facts (f : wlc_field) : Prop := {
  ff_size : 1 <= key_size f < 4;
  ff_length : length (key f) = 3%nat;
  ff_key : take (Z.to_nat (key_size f)) (key f) = wlc_putv (number f * 8 + wire f);
  ff_max : 0 <= max_length f;
  ff_signed : in_s 64 (signed_default f);
  ff_unsigned : in_u 64 (unsigned_default f)
}.

Lemma wf_field_facts w f : wf_field w f = true -> field_facts f.
Proof.
  unfold wf_field. rewrite !andb_true_iff.
  intros [[[[[[[Hs _] Hl] Hk] Hm] Hsd] Hud] _].
  constructor; [by apply between_spec|by apply Nat.eqb_eq|by apply bool_decide_eq_true in Hk
    |by apply Z.leb_le|by apply between_s_spec|by apply between_u_spec].
Qed.

(** The two shapes of a field. *)
Variant field_shape (w : wlc_desc -> bool) (f : wlc_field) : Prop :=
| shape_optional :
    card f = WLC_OPTIONAL -> wire f = wire_of (kind f) ->
    match kind f, nested f with
    | WLC_MESSAGE, Some d => w d = true
    | WLC_MESSAGE, None => False
    | WLC_STRING, _ => string_default f = None /\ unsigned_default f = 0
    | _, _ => True
    end -> field_shape w f
| shape_packed :
    card f = WLC_PACKED -> wire f = 2 -> 0 <= packed_count f < 65536 ->
    ((kind f = WLC_F32 \/ kind f = WLC_FLOAT32) /\ element f = 4 \/
     (kind f = WLC_F64 \/ kind f = WLC_FLOAT64) /\ element f = 8) -> field_shape w f.

Lemma wf_field_shape w f : wf_field w f = true -> field_shape w f.
Proof.
  unfold wf_field. rewrite !andb_true_iff. intros [_ H]. destruct (card f) eqn:Hc; [|done|].
  - apply andb_prop in H as [Hw%Z.eqb_eq H]. apply shape_optional; [done..|].
    destruct (kind f), (nested f); try done;
      apply andb_prop in H as [?%bool_decide_eq_true ?%Z.eqb_eq]; done.
  - apply andb_prop in H as [[Hw%Z.eqb_eq Hp%between_spec]%andb_prop H].
    apply shape_packed; [done..|]. destruct (kind f); try done; apply Z.eqb_eq in H; auto.
Qed.

Lemma key_bytes_enc f : field_facts f -> wlc_key_bytes f = wlc_putv (number f * 8 + wire f).
Proof.
  intros [Hs Hl Hk _ _ _]. rewrite <- Hk. unfold wlc_key_bytes. f_equal. rewrite !Z.gtb_ltb.
  zcases; lia.
Qed.

Lemma key_length f : field_facts f ->
  Z.of_nat (length (wlc_putv (number f * 8 + wire f))) = key_size f.
Proof. intros [Hs Hl <- _ _ _]. rewrite length_take. lia. Qed.

Lemma put32_length v : length (wlc_put32 v) = 4%nat. Proof. done. Qed.
Lemma put64_length v : length (wlc_put64 v) = 8%nat. Proof. done. Qed.

Lemma enc_words_length f elems :
  element f = 4 \/ element f = 8 ->
  Z.of_nat (length (concat (map (enc_word f) elems))) = element f * Z.of_nat (length elems).
Proof.
  intros He. induction elems as [|z elems IH]; [simpl; lia|].
  cbn [map concat length]. rewrite length_app. unfold enc_word at 1.
  destruct He as [He|He]; rewrite He in *; [change (4 =? 4) with true|change (8 =? 4) with false];
    cbn [length wlc_put32]; rewrite ?put64_length; lia.
Qed.

Lemma packed_bytes_ok f w :
  field_shape w f -> card f = WLC_PACKED ->
  wlc_packed_bytes f = Ok (element f * packed_count f) /\
  0 <= element f * packed_count f < 524288 /\ (element f = 4 \/ element f = 8).
Proof.
  intros [->|Hc _ Hp Hk] ?; [done|]. unfold wlc_packed_bytes.
  assert (element f = 4 \/ element f = 8) as He by tauto.
  split; [|split; [lia|done]].
  destruct (Z.eqb_spec (packed_count f) 0); [done|].
  assert (2 ^ 40 <= SIZE_MAX / packed_count f) as Hq
    by (apply Z.div_le_lower_bound; unfold SIZE_MAX; lia).
  rewrite Z.gtb_ltb, (proj2 (Z.ltb_ge _ _)) by lia. done.
Qed.

(** ** Measuring is the length of the reference encoding *)

Lemma prefixed_length l :
  in_u 64 (Z.of_nat (length l)) ->
  Z.of_nat (length (prefixed l)) = wlc_vsize (Z.of_nat (length l)) + Z.of_nat (length l).
Proof.
  intros Hl. unfold prefixed. rewrite length_app, Nat2Z.inj_add, wlc_putv_length by done. done.
Qed.

Definition measures (vld : bool) (d : wlc_desc) : Prop :=
  wf_desc d = true -> forall slots n,
  valid d slots = true -> wlc_measure_impl vld d slots = Ok n ->
  n = Z.of_nat (length (enc d slots)) /\ n <= SIZE_MAX.

Lemma span_body_enc vld f utf8 data len n :
  match data with None => between_u 64 len
  | Some l => between_u 64 len && bytes_okb l && (Z.of_nat (length l) =? len) end = true ->
  span_body vld f utf8 data len = Ok n ->
  n = Z.of_nat (length (prefixed (default [] data))) /\ len = Z.of_nat (length (default [] data)) /\
  bytes_ok (default [] data) /\ in_u 64 len /\ (max_length f = 0 \/ len <= max_length f) /\
  (utf8 = true -> vld = false -> wlc_utf8 (default [] data) = true).
Proof.
  intros Hv. unfold span_body.
  destruct (negb (max_length f =? 0) && (len >? max_length f)) eqn:Hmax; [done|].
  destruct (negb (len =? 0) && _) eqn:Hnull; [done|].
  assert (len = Z.of_nat (length (default [] data)) /\ bytes_ok (default [] data) /\ in_u 64 len)
    as (Hlen & Hok & Hu).
  { destruct data as [l|]; cbn [default].
    - apply andb_prop in Hv as [[?%between_u_spec ?%bytes_okb_spec]%andb_prop ?%Z.eqb_eq]. done.
    - apply between_u_spec in Hv. rewrite andb_true_r in Hnull.
      apply negb_false_iff, Z.eqb_eq in Hnull. split_and!; [done|constructor|done]. }
  rewrite (firstn_all2 (default [] data)) by lia.
  destruct (utf8 && negb vld && _) eqn:Hutf; [done|].
  destruct (wlc_add 0 _) as [m|] eqn:Hadd; [|done].
  apply wlc_add_ok in Hadd as [-> _]. intros [-> _]%wlc_add_ok.
  rewrite prefixed_length by (rewrite <- Hlen; done). rewrite <- Hlen.
  split_and!; [lia|done|done|done| |].
  - apply andb_false_iff in Hmax as [?%negb_false_iff%Z.eqb_eq|?]; [by left|right].
    rewrite Z.gtb_ltb in *. by apply Z.ltb_ge.
  - intros -> ->. by apply negb_false_iff in Hutf.
Qed.

Ltac num_facts :=
  repeat match goal with
  | H : between_u _ _ = true |- _ => apply between_u_spec in H
  | H : between_s _ _ = true |- _ => apply between_s_spec in H
  end.

Lemma in_u_weaken w w' z : 0 <= w <= w' -> in_u w z -> in_u w' z.
Proof.
  unfold in_u. intros Hw Hz. pose proof (Z.pow_le_mono_r 2 w w' ltac:(lia) ltac:(lia)). lia.
Qed.
Lemma in_s_weaken w w' z : 1 <= w <= w' -> in_s w z -> in_s w' z.
Proof.
  unfold in_s. intros Hw Hz.
  pose proof (Z.pow_le_mono_r 2 (w - 1) (w' - 1) ltac:(lia) ltac:(lia)). lia.
Qed.

Lemma zz32_u64 z w : 1 <= w <= 32 -> in_s w z -> in_u 64 (zz 32 z).
Proof.
  intros Hw Hz. eapply in_u_weaken, zz_range; [lia|lia|]. by eapply in_s_weaken; [|done].
Qed.

Definition nested_wf (f : wlc_field) : Prop :=
  kind f = WLC_MESSAGE -> nested_all (fun d => wf_desc d = true) (nested f).

Lemma shape_nested_wf f : field_shape wf_desc f -> nested_wf f.
Proof.
  intros [_ _ H|_ _ _ Hk] Hm; [|destruct Hk as [[[|] _]|[[|] _]]; congruence].
  rewrite Hm in H. by destruct (nested f).
Qed.

Lemma body_enc vld f v n :
  valid_value valid f v = true -> nested_wf f -> nested_all (measures vld) (nested f) ->
  wlc_body (wlc_measure_impl vld) vld f v = Ok n ->
  n = Z.of_nat (length (enc_value enc f v)).
Proof.
  intros Hv Hwf Hn Hb. unfold valid_value, wlc_body, nested_wf in *.
  destruct (kind f) eqn:Hk; destruct v as [z|data len|vs]; try done;
    try (apply span_body_enc in Hb as (-> & _); [done|by destruct data]);
    unfold enc_value; rewrite ?Hk; num_facts.
  all: try (injection Hb as <-; rewrite wlc_putv_length;
    [done|first [by eapply in_u_weaken; [|done]; lia | by eapply zz32_u64; [|done]; lia
      | by apply zz_range]]).
  all: try (injection Hb as <-; done).
  - destruct (_ && _); [done|]. injection Hb as <-.
    assert (z = 0 \/ z = 1) as [-> | ->] by (unfold in_u in Hv; lia); done.
  - destruct (nested f) as [d|]; [|done]. cbn [nested_all] in *.
    apply res_bind_ok in Hb as (child & Hc & [-> Hmax]%wlc_add_ok).
    destruct (Hn (Hwf eq_refl) vs child Hv Hc) as [-> Hle].
    rewrite prefixed_length; [done|unfold in_u, SIZE_MAX in *; lia].
Qed.

Lemma measure_field_enc vld f s n m :
  field_facts f -> field_shape wf_desc f -> valid_slot valid f s = true ->
  nested_all (measures vld) (nested f) ->
  measure_field (wlc_measure_impl vld) vld f s n = Ok m -> n <= SIZE_MAX ->
  m = n + Z.of_nat (length (enc_slot enc f s)) /\ m <= SIZE_MAX.
Proof.
  intros Hff Hsh Hv Hn Hm Hmax. unfold valid_slot, measure_field in *.
  destruct (card f) eqn:Hc; destruct s as [h v|h elems|]; try done.
  - destruct h; cbn [negb] in Hm; [|destruct (required f =? 0); [|done]].
    + apply res_bind_ok in Hm as (body & Hb & Hm).
      apply res_bind_ok in Hm as (n1 & [-> Hn1]%wlc_add_ok & Hm).
      apply res_bind_ok in Hm as (n2 & [-> Hn2]%wlc_add_ok & [= <-]).
      apply body_enc in Hb as ->; [|done|by apply shape_nested_wf|done].
      cbn [enc_slot]. rewrite length_app, Nat2Z.inj_add, key_length by done. lia.
    + injection Hm as <-. cbn [enc_slot length]. lia.
  - destruct h; cbn [negb] in Hm; [|destruct (required f =? 0); [|done]].
    + destruct (packed_bytes_ok f wf_desc Hsh Hc) as (Hpb & Hb & He). rewrite Hpb in Hm.
      apply res_bind_ok in Hm as (? & [= <-] & Hm).
      apply res_bind_ok in Hm as (n1 & [-> Hn1]%wlc_add_ok & Hm).
      apply res_bind_ok in Hm as (n2 & [-> Hn2]%wlc_add_ok & [-> Hn3]%wlc_add_ok).
      apply andb_prop in Hv as [Hl%Z.eqb_eq _].
      cbn [enc_slot]. rewrite length_app, Nat2Z.inj_add, key_length by done.
      pose proof (enc_words_length f elems He) as Hw. rewrite Hl in Hw.
      rewrite prefixed_length by (rewrite Hw; unfold in_u; lia). rewrite Hw. lia.
    + injection Hm as <-. cbn [enc_slot length]. lia.
Qed.

Lemma measure_fields_enc vld fs : forall slots n m,
  forallb (wf_field wf_desc) fs = true -> Forall (fun f => nested_all (measures vld) (nested f)) fs ->
  valid_fields valid fs slots = true ->
  measure_fields (wlc_measure_impl vld) vld fs slots n = Ok m -> n <= SIZE_MAX ->
  m = n + Z.of_nat (length (enc_fields enc fs slots)) /\ m <= SIZE_MAX.
Proof.
  induction fs as [|f fs IH]; intros [|s slots] n m Hwf Hn Hv Hm Hmax; try done.
  - injection Hm as <-. cbn [enc_fields length]. lia.
  - cbn [forallb measure_fields valid_fields enc_fields] in *.
    apply andb_prop in Hwf as [Hf Hwf]. apply andb_prop in Hv as [Hs Hv].
    apply Forall_cons_1 in Hn as [Hnf Hn].
    apply res_bind_ok in Hm as (n1 & Hm1 & Hm).
    eapply measure_field_enc in Hm1 as [-> ?];
      [|by eapply wf_field_facts|by apply wf_field_shape|done..].
    eapply IH in Hm as [-> ?]; [|done..]. rewrite length_app. lia.
Qed.

Lemma wf_desc_inv fs l : wf_desc (Desc fs l) = true ->
  lookup_ok fs l = true /\ Z.of_nat (length fs) <= 65535 /\ forallb (wf_field wf_desc) fs = true.
Proof. cbn [wf_desc]. rewrite !andb_true_iff, Z.leb_le. tauto. Qed.

Lemma measure_enc vld d : measures vld d.
Proof.
  induction d as [fs l IH] using wlc_desc_nested_ind. intros Hwf slots n Hv Hm.
  apply wf_desc_inv in Hwf as (_ & _ & Hwf).
  eapply (measure_fields_enc vld fs slots 0) in Hm as [-> ?]; [|done..]. done.
Qed.

(** A struct that measures also measures as validated. *)
Definition validates (d : wlc_desc) : Prop :=
  forall slots n, wlc_measure_impl false d slots = Ok n -> wlc_measure_impl true d slots = Ok n.

Lemma body_validates f v n :
  nested_all validates (nested f) ->
  wlc_body (wlc_measure_impl false) false f v = Ok n ->
  wlc_body (wlc_measure_impl true) true f v = Ok n.
Proof.
  intros Hn. unfold wlc_body, span_body. destruct (kind f), v as [z|data len|vs]; try done.
  - rewrite !andb_false_r. cbn [andb]. repeat case_match; done.
  - destruct (nested f) as [d|]; [|done]. intros (c & Hc & Ha)%res_bind_ok.
    apply Hn in Hc. by rewrite Hc.
Qed.

Lemma elements_validates f vs : nested_all validates (nested f) -> forall n m,
  measure_elements (wlc_measure_impl false) false f vs n = Ok m ->
  measure_elements (wlc_measure_impl true) true f vs n = Ok m.
Proof.
  intros Hn. induction vs as [|v vs IH]; intros n m; [done|]. cbn [measure_elements].
  intros (b & Hb%body_validates & Hm)%res_bind_ok; [|done].
  apply res_bind_ok in Hm as (n1 & Hn1 & (n2 & Hn2 & Hm)%res_bind_ok).
  rewrite Hb. cbn. rewrite Hn1. cbn. rewrite Hn2. cbn. by apply IH.
Qed.

Lemma measure_validates d : validates d.
Proof.
  induction d as [fs l IH] using wlc_desc_nested_ind.
  unfold validates. cbn [wlc_measure_impl]. intros slots. generalize 0.
  revert slots. induction IH as [|f fs Hf _ IHfs]; intros [|s slots] n m; try done.
  cbn [measure_fields]. intros (n1 & Hn1 & Hm)%res_bind_ok.
  enough (measure_field (wlc_measure_impl true) true f s n = Ok n1) as ->
    by (cbn; by apply IHfs).
  clear Hm. revert Hn1. unfold measure_field.
  destruct (card f), s; try done; repeat case_match; try done; by apply elements_validates.
Qed.

(** ** Emitting writes the reference encoding *)

Section emit_enc.
Context {S : Type} `{!Sink S}.
(** [R s l]: the bytes [l] have been written to the sink [s]. *)
Variable R : S -> bytes -> Prop.
Hypothesis put_bytes_R : forall s l b,
  R s l -> Z.of_nat (length (l ++ b)) <= SIZE_MAX -> R (put_bytes s b) (l ++ b).
Hypothesis put_key_R : forall s l f,
  R s l -> field_facts f -> Z.of_nat (length (l ++ wlc_putv (number f * 8 + wire f))) <= SIZE_MAX ->
  R (put_key s f) (l ++ wlc_putv (number f * 8 + wire f)).
Variable measure : wlc_desc -> wstruct -> codec Z.
Hypothesis measure_ok : forall d slots n,
  wlc_measure d slots = Ok n -> measure d slots = Ok n.

(** The emission [e] succeeds and has written [l] more. *)
Definition wrote (e : wl_codec_status * S) (l : bytes) : Prop :=
  exists s', e = (WL_CODEC_OK, s') /\ R s' l.

Definition fits (l : bytes) : Prop := Z.of_nat (length l) <= SIZE_MAX.

Lemma fits_app l1 l2 : fits (l1 ++ l2) -> fits l1.
Proof. unfold fits. rewrite length_app. lia. Qed.

Definition emits (d : wlc_desc) : Prop :=
  wf_desc d = true -> forall slots n s l,
  valid d slots = true -> wlc_measure d slots = Ok n ->
  R s l -> fits (l ++ enc d slots) -> wrote (wlc_emit measure d slots s) (l ++ enc d slots).

Lemma emit_value_enc f v n s l :
  valid_value valid f v = true -> nested_wf f -> nested_all emits (nested f) ->
  wlc_body wlc_measure false f v = Ok n -> R s l -> fits (l ++ enc_value enc f v) ->
  wrote (emit_value measure (wlc_emit measure) f v s) (l ++ enc_value enc f v).
Proof.
  intros Hv Hwf Hn Hb HR Hfit. unfold valid_value, wlc_body, emit_value, emit_fixed, nested_wf in *.
  destruct (kind f) eqn:Hk; destruct v as [z|data len|vs]; try done;
    unfold enc_value in *; rewrite ?Hk in *;
    try (eexists; split; [reflexivity|by apply put_bytes_R]).
  1,2: apply span_body_enc in Hb as (_ & Hlen & _); [|by destruct data].
  1,2: unfold prefixed in *; rewrite <- Hlen in *; rewrite app_assoc in *.
  1,2: eexists; split; [reflexivity|]; unfold copy_span.
  1,2: pose proof (put_bytes_R _ _ _ HR (fits_app _ _ Hfit)) as HR1.
  1,2: destruct (Z.eqb_spec len 0) as [->|]; cbn [negb];
    [destruct (default [] data); [by rewrite app_nil_r|done]
    |rewrite (firstn_all2 (default [] data)) by lia; by apply put_bytes_R].
  destruct (nested f) as [d|]; [|done]. cbn [nested_all] in *.
  apply res_bind_ok in Hb as (child & Hc & _).
  pose proof (measure_enc false d (Hwf eq_refl) vs child Hv Hc) as [Hcl _].
  apply measure_ok in Hc as Hc'. rewrite Hc'.
  unfold prefixed in *. rewrite <- Hcl in *. rewrite app_assoc in *.
  apply (Hn (Hwf eq_refl) vs child); [done|done| |done].
  apply put_bytes_R; [done|by eapply fits_app].
Qed.

Lemma emit_words_R elems s l :
  R s l ->
  (fits (l ++ concat (map wlc_put32 elems)) ->
   R (foldl put32 s elems) (l ++ concat (map wlc_put32 elems))) /\
  (fits (l ++ concat (map wlc_put64 elems)) ->
   R (foldl put64 s elems) (l ++ concat (map wlc_put64 elems))).
Proof.
  revert s l. induction elems as [|z elems IH]; intros s l HR;
    cbn [map concat foldl]; [by rewrite app_nil_r|].
  rewrite !app_assoc. split; intros Hfit;
    (eapply IH; [apply put_bytes_R; [done|by eapply fits_app]|done]).
Qed.

Lemma emit_field_enc f x n m s l :
  field_facts f -> field_shape wf_desc f -> valid_slot valid f x = true ->
  nested_all emits (nested f) -> measure_field wlc_measure false f x n = Ok m ->
  R s l -> fits (l ++ enc_slot enc f x) ->
  wrote (emit_field measure (wlc_emit measure) f x s) (l ++ enc_slot enc f x).
Proof.
  intros Hff Hsh Hv Hn Hm HR Hfit. unfold valid_slot, measure_field, emit_field in *.
  destruct (card f) eqn:Hc; destruct x as [h v|h elems|]; try done;
    (destruct h; cbn [negb emit_elements enc_slot] in *; [|rewrite app_nil_r; by exists s]);
    rewrite app_assoc in *;
    pose proof (put_key_R _ _ _ HR Hff (fits_app _ _ Hfit)) as HR1.
  - apply res_bind_ok in Hm as (body & Hb & _).
    eapply emit_value_enc in Hb as (s' & -> & HR'); [| |by apply shape_nested_wf|done..];
      [by exists s'|done].
  - destruct (packed_bytes_ok f wf_desc Hsh Hc) as (Hpb & Hb & He).
    apply andb_prop in Hv as [Hl%Z.eqb_eq _].
    unfold emit_packed. rewrite Hpb, <- Hl, <- (enc_words_length f elems He).
    rewrite (firstn_all2 elems) by lia.
    unfold prefixed in Hfit |- *. rewrite app_assoc in Hfit |- *.
    pose proof (put_bytes_R _ _ _ HR1 (fits_app _ _ Hfit)) as HR2.
    destruct (emit_words_R elems _ _ HR2) as [H32 H64].
    destruct Hsh as [|_ _ _ Hk]; [congruence|].
    destruct Hk as [[[Hk|Hk] He']|[[Hk|Hk] He']]; rewrite Hk;
      (eexists; split; [reflexivity|]); unfold enc_word in *; rewrite He' in *; auto.
Qed.

Lemma emit_enc d : emits d.
Proof.
  induction d as [fs l IH] using wlc_desc_nested_ind. intros Hwf slots n s l' Hv Hm HR Hfit.
  apply wf_desc_inv in Hwf as (_ & _ & Hwf).
  cbn [wlc_emit enc valid] in *. unfold wlc_measure in Hm. cbn [wlc_measure_impl] in Hm.
  revert slots s l' n Hwf Hv Hm HR Hfit. generalize 0.
  induction IH as [|f fs Hf _ IHfs]; intros z [|x slots] s l' n Hwf Hv Hm HR Hfit; try done;
    cbn [forallb measure_fields valid_fields enc_fields emit_fields] in *;
    [rewrite app_nil_r; by exists s|].
  apply andb_prop in Hwf as [Hwff Hwf]. apply andb_prop in Hv as [Hvf Hv].
  apply res_bind_ok in Hm as (n1 & Hm1 & Hm). rewrite app_assoc in *.
  eapply emit_field_enc in Hm1 as (s' & -> & HR');
    [|by eapply wf_field_facts|by apply wf_field_shape|done..|by eapply fits_app].
  by eapply IHfs.
Qed.
End emit_enc.

(** The two sinks. *)

Lemma emit_cursor d slots n :
  wf_desc d = true -> valid d slots = true -> wlc_measure d slots = Ok n ->
  wlc_emit_fields d slots [] = (WL_CODEC_OK, enc d slots).
Proof.
  intros Hwf Hv Hm. pose proof (measure_enc false d Hwf slots n Hv Hm) as [Hn Hmax].
  destruct (emit_enc (S := bytes) (fun s l => s = l) ltac:(by intros ??? ->)
    ltac:(intros s l f -> Hff _; cbn; by rewrite key_bytes_enc) wlc_measure ltac:(done)
    d Hwf slots n [] [] Hv Hm eq_refl) as (s' & He & ->); [unfold fits; simpl; lia|].
  exact He.
Qed.

(** The hash state after the bytes [l]. *)
Definition hashed (seed : Z) (st : wlc_hash_state) (l : bytes) : Prop :=
  st = HashState (foldl fnv_step seed l) (Z.of_nat (length l)) WL_CODEC_OK.

Lemma hash_span_hashed seed st l b :
  hashed seed st l -> Z.of_nat (length (l ++ b)) <= SIZE_MAX ->
  hashed seed (wlc_hash_copy_span st b) (l ++ b).
Proof.
  unfold hashed. intros ->. rewrite length_app, Nat2Z.inj_add. intros Hfit.
  unfold wlc_hash_copy_span. cbn [status hash length_].
  rewrite (proj2 (wlc_add_ok _ _ _) (conj eq_refl Hfit)). by rewrite foldl_app.
Qed.

Lemma emit_hash d slots n seed :
  wf_desc d = true -> valid d slots = true -> wlc_measure d slots = Ok n ->
  wlc_fingerprint d slots seed = Ok (foldl fnv_step seed (enc d slots), n).
Proof.
  intros Hwf Hv Hm. pose proof (measure_enc false d Hwf slots n Hv Hm) as [Hn Hmax].
  destruct (@emit_enc wlc_hash_state hash_sink (hashed seed) (hash_span_hashed seed)
    ltac:(intros s l f Hs Hff Hfit; cbn; unfold wlc_hash_put_key; rewrite ff_key by done;
          by apply hash_span_hashed)
    wlc_measure_validated measure_validates
    d Hwf slots n (HashState seed 0 WL_CODEC_OK) [] Hv Hm eq_refl)
    as (s' & He & Hs'); [unfold fits; simpl; lia|].
  unfold wlc_fingerprint, wlc_hash_emit_fields. rewrite He. unfold hashed in Hs'.
  subst s' n. done.
Qed.

(** ** Decoding reads the reference encoding back *)

Lemma take_app_len {A} n (l k : list A) : n = length l -> take n (l ++ k) = l.
Proof. intros ->. apply take_app_length. Qed.
Lemma drop_app_len {A} n (l k : list A) : n = length l -> drop n (l ++ k) = k.
Proof. intros ->. apply drop_app_length. Qed.

Lemma read_words_32 elems rest : Forall (in_u 32) elems ->
  read_words 4 (length elems) (concat (map wlc_put32 elems) ++ rest) = (elems, rest).
Proof.
  induction 1 as [|z elems Hz _ IH]; [done|]. cbn [length read_words map concat].
  rewrite <- app_assoc, take_app_len, drop_app_len, IH, be_put32 by done. done.
Qed.

Lemma read_words_64 elems rest : Forall (in_u 64) elems ->
  read_words 8 (length elems) (concat (map wlc_put64 elems) ++ rest) = (elems, rest).
Proof.
  induction 1 as [|z elems Hz _ IH]; [done|]. cbn [length read_words map concat].
  rewrite <- app_assoc, take_app_len, drop_app_len, IH, be_put64 by done. done.
Qed.

Lemma read_packed_enc f elems rest :
  field_shape wf_desc f -> card f = WLC_PACKED ->
  valid_slot valid f (SPacked true elems) = true ->
  wlc_read_packed f (prefixed (concat (map (enc_word f) elems)) ++ rest) = Ok (elems, rest).
Proof.
  intros Hsh Hc Hv. unfold valid_slot in Hv. rewrite Hc in Hv.
  destruct (packed_bytes_ok f wf_desc Hsh Hc) as (Hpb & Hb & He).
  apply andb_prop in Hv as [Hl%Z.eqb_eq Hel].
  rewrite (forallb_Forall _ (in_u (8 * element f))) in Hel by (intros; apply between_u_spec).
  pose proof (enc_words_length f elems He) as Hw. rewrite Hl in Hw.
  unfold wlc_read_packed, prefixed. rewrite <- app_assoc, getv_putv by (rewrite Hw; unfold in_u; lia).
  cbn. rewrite Hpb. cbn. rewrite Hw, Z.eqb_refl. cbn.
  rewrite Z.gtb_ltb, length_app, Nat2Z.inj_add, Hw, (proj2 (Z.ltb_ge _ _)) by lia.
  replace (Z.to_nat (packed_count f)) with (length elems) by lia.
  destruct Hsh as [|_ _ _ Hk]; [congruence|].
  destruct Hk as [[[Hk|Hk] He']|[[Hk|Hk] He']]; rewrite Hk;
    unfold enc_word in *; rewrite He' in *; cbn in Hel |- *;
    f_equal; (apply read_words_32 || apply read_words_64); done.
Qed.

Lemma zz_small w z : 1 <= w <= 32 -> in_s w z -> 0 <= zz 32 z < 2 ^ w.
Proof.
  intros Hw Hz. rewrite zz_spec by (try lia; by eapply in_s_weaken; [|done]).
  unfold in_s in Hz.
  assert (2 ^ w = 2 * 2 ^ (w - 1)) by (rewrite <- Z.pow_succ_r by lia; f_equal; lia).
  zcases; lia.
Qed.

(** A signed integer of [w] bits comes back from its zigzag varint. *)
Lemma uz32_zz w z : 1 <= w <= 32 -> in_s w z -> wlc_uz32 (u32 (zz 32 z)) = z.
Proof.
  intros Hw Hz. assert (in_s 32 z) by (by eapply in_s_weaken; [|done]).
  rewrite wrap_id by (apply zz_range; done || lia). apply uzz_zz; done || lia.
Qed.

Definition decodes (d : wlc_desc) : Prop :=
  wf_desc d = true -> forall slots n old,
  valid d slots = true -> wlc_measure d slots = Ok n ->
  wlc_decode d (enc d slots) old = (WL_CODEC_OK, canon d slots).

Definition decoder_of (o : option wlc_desc) : option nested_decoder :=
  match o with Some d => Some (wlc_decode d) | None => None end.

Lemma read_varint_enc f z rest :
  valid_value valid f (VInt z) = true ->
  match kind f with WLC_F32 | WLC_FLOAT32 | WLC_F64 | WLC_FLOAT64 => False | _ => True end ->
  exists v, wlc_getv (enc_value enc f (VInt z) ++ rest) = Ok (v, rest) /\
    read_varint_value (kind f) v = Ok z.
Proof.
  intros Hv Hk. unfold valid_value, enc_value in *.
  destruct (kind f) eqn:E; try done; num_facts;
    (eexists; split; [apply getv_putv|]);
    try (by eapply in_u_weaken; [|done]);
    try (by eapply zz32_u64; [|done]); try (by apply zz_range); unfold read_varint_value;
    rewrite ?Z.gtb_ltb.
  1: assert (z = 0 \/ z = 1) as [-> | ->] by (unfold in_u in Hv; lia); done.
  1-3: (rewrite (proj2 (Z.ltb_ge _ _)) by (unfold in_u in Hv; lia); by rewrite wrap_id).
  - done.
  - pose proof (zz_small 8 z ltac:(lia) Hv). rewrite (proj2 (Z.ltb_ge _ _)) by lia.
    by rewrite (uz32_zz 8), swrap_id by (done || lia).
  - pose proof (zz_small 16 z ltac:(lia) Hv). rewrite (proj2 (Z.ltb_ge _ _)) by lia.
    by rewrite (uz32_zz 16), swrap_id by (done || lia).
  - pose proof (zz_small 32 z ltac:(lia) Hv). rewrite (proj2 (Z.ltb_ge _ _)) by lia.
    by rewrite (uz32_zz 32) by (done || lia).
  - f_equal. apply (uzz_zz 64); [lia|done].
  - pose proof (zz_small 32 z ltac:(lia) Hv). rewrite (proj2 (Z.ltb_ge _ _)) by lia.
    by rewrite (uz32_zz 32) by (done || lia).
Qed.

Lemma read_value_enc f v n rest old :
  valid_value valid f v = true -> nested_wf f -> nested_all decodes (nested f) ->
  wlc_body wlc_measure false f v = Ok n ->
  wlc_read_value f (decoder_of (nested f)) (enc_value enc f v ++ rest) old =
    (Ok rest, canon_value canon f v).
Proof.
  intros Hv Hwf Hn Hb. destruct v as [z|data len|vs]; unfold wlc_read_value.
  - destruct (kind f) eqn:Hk;
      try (destruct (read_varint_enc f z rest Hv) as (v & -> & Hr); [by rewrite Hk|];
           rewrite Hk in Hr; rewrite Hr; done);
      unfold valid_value, enc_value in *; rewrite Hk in *; try done; num_facts;
      unfold wlc_read_fixed.
    all: rewrite take_app_len, drop_app_len, ?be_put32, ?be_put64, ?wrap_id by done.
    all: rewrite length_app, ?put32_length, ?put64_length; done.
  - unfold valid_value, wlc_body in *.
    destruct (kind f) eqn:Hk; try done; unfold enc_value;
      (apply span_body_enc in Hb as (_ & Hlen & _ & Hu & Hmax & Hutf); [|by destruct data]);
      unfold prefixed; rewrite <- app_assoc, <- Hlen, getv_putv by done;
      rewrite bool_decide_true by done; cbn [andb];
      assert (negb (max_length f =? 0) && (len >? max_length f) = false) as ->
        by (rewrite Z.gtb_ltb; destruct Hmax as [->|Hmax]; [done|];
            rewrite (proj2 (Z.ltb_ge _ _)) by done; apply andb_false_r);
      rewrite Z.gtb_ltb, (proj2 (Z.ltb_ge _ _)) by (rewrite length_app; lia);
      rewrite take_app_len, drop_app_len by lia; [done|].
    by rewrite Hutf.
  - unfold valid_value, wlc_body, enc_value, nested_wf, canon_value in *.
    destruct (kind f) eqn:Hk; try done. destruct (nested f) as [d|]; [|done].
    cbn [nested_all decoder_of] in *. apply res_bind_ok in Hb as (child & Hc & _).
    pose proof (measure_enc false d (Hwf eq_refl) vs child Hv Hc) as [Hcl Hmax].
    unfold prefixed. rewrite <- app_assoc, <- Hcl, getv_putv by (unfold in_u, SIZE_MAX in *; lia).
    rewrite bool_decide_false by (intros H; by apply H). cbn [andb].
    rewrite Z.gtb_ltb, (proj2 (Z.ltb_ge _ _)) by (rewrite length_app; lia).
    rewrite take_app_len, drop_app_len by lia.
    rewrite (Hn (Hwf eq_refl) vs child _ Hv Hc). done.
Qed.

(** Without repeated fields, clearing does not depend on what was stored. *)
Lemma clear_old d : wf_desc d = true -> forall old, wlc_clear d old = wlc_clear d [].
Proof.
  induction d as [fs l IH] using wlc_desc_nested_ind.
  intros (_ & _ & Hwf)%wf_desc_inv old. cbn [wlc_clear].
  revert old. induction IH as [|f fs Hf _ IHfs]; intros old; [done|].
  cbn [forallb clear_fields] in *. apply andb_prop in Hwf as [Hwf Hwfs].
  rewrite (IHfs Hwfs (tail old)), (IHfs Hwfs (tail [])). f_equal.
  pose proof (shape_nested_wf f (wf_field_shape _ _ Hwf)) as Hnw.
  apply wf_field_shape in Hwf. unfold clear_slot, nested_wf in *.
  destruct Hwf as [-> _ _| -> _ _ _]; [|done]. f_equal.
  destruct (kind f), (nested f) as [d|]; try done. f_equal. by rewrite !(Hf (Hnw eq_refl)).
Qed.

Lemma canon_slot_has f s : valid_slot valid f s = true -> slot_has (canon_slot canon f s) = slot_has s.
Proof.
  unfold valid_slot, canon_slot, clear_slot.
  destruct (card f), s as [[] ?|[] ?|]; done.
Qed.

Lemma measure_field_required m vld f s n k :
  measure_field m vld f s n = Ok k -> negb (required f =? 0) && negb (slot_has s) = false.
Proof.
  unfold measure_field. destruct (required f =? 0); [done|]. cbn [negb andb].
  by destruct (card f), s as [[] ?|[] ?|].
Qed.

Lemma not_missing fs : forall slots n k,
  valid_fields valid fs slots = true -> measure_fields wlc_measure false fs slots n = Ok k ->
  missing_required fs (canon_fields canon fs slots) = false.
Proof.
  unfold missing_required. induction fs as [|f fs IH]; intros [|s slots] n k Hv Hm; try done.
  cbn [valid_fields measure_fields canon_fields zip zip_with existsb] in *.
  apply andb_prop in Hv as [Hs Hv]. apply res_bind_ok in Hm as (n1 & Hm1 & Hm).
  rewrite canon_slot_has, (measure_field_required _ _ _ _ _ _ Hm1) by done. by eapply IH.
Qed.

Lemma decode_key_enc n w :
  1 <= n <= 65535 -> w = 0 \/ w = 1 \/ w = 2 \/ w = 5 -> decode_key (n * 8 + w) = Ok (n, w).
Proof.
  intros Hn Hw. unfold decode_key. rewrite land_7, Z.shiftr_div_pow2 by lia. change (2 ^ 3) with 8.
  replace ((n * 8 + w) / 8) with n by (Z.to_euclidean_division_equations; lia).
  replace ((n * 8 + w) mod 8) with w by (Z.to_euclidean_division_equations; lia).
  rewrite Z.gtb_ltb. by decide_cmp; zcases; try lia.
Qed.

Lemma wire_cases f : field_shape wf_desc f ->
  wire f = 0 \/ wire f = 1 \/ wire f = 2 \/ wire f = 5.
Proof. intros [_ -> _|_ -> _ _]; [|tauto]. destruct (kind f); cbn; tauto. Qed.

Lemma putv_nonempty v : exists b l, wlc_putv v = b :: l.
Proof. unfold wlc_putv. cbn [wlc_putv_loop]. destruct (v >=? 128); eauto. Qed.

(** A present field is read into its cleared member. *)
Lemma decode_slot_enc f s rest n k :
  field_shape wf_desc f -> valid_slot valid f s = true -> slot_has s = true ->
  nested_all decodes (nested f) -> measure_field wlc_measure false f s n = Ok k ->
  exists l, enc_slot enc f s = wlc_putv (number f * 8 + wire f) ++ l /\
    decode_slot f (decoder_of (nested f)) (l ++ rest) (clear_slot wlc_clear f None) =
      (Ok rest, canon_slot canon f s).
Proof.
  intros Hsh Hv Hh Hn Hm. unfold decode_slot, clear_slot, measure_field.
  pose proof Hv as Hv'. unfold valid_slot in Hv'. unfold measure_field in Hm.
  destruct (card f) eqn:Hc; destruct s as [h v|h elems|]; try done;
    cbn [slot_has] in Hh; subst h; cbn [enc_slot canon_slot negb] in *;
    (eexists; split; [reflexivity|]).
  - apply res_bind_ok in Hm as (body & Hb & _).
    erewrite read_value_enc; [done|done|by apply shape_nested_wf|done|done].
  - by rewrite read_packed_enc.
Qed.

Lemma shape_single w f : field_shape w f -> bool_decide (card f = WLC_REPEATED) = false.
Proof. by intros [-> _ _| -> _ _ _]. Qed.

Lemma clear_fields_nil fs : clear_fields wlc_clear fs [] = map (fun f => clear_slot wlc_clear f None) fs.
Proof. induction fs as [|f fs IH]; [done|]. cbn [clear_fields map head tail]. by rewrite IH. Qed.

Section loop.
Variables (fs : list wlc_field) (l : wlc_lookup).
Hypothesis Hl : lookup_ok fs l = true.
Hypothesis Hlen : Z.of_nat (length fs) <= 65535.
Let decs := map (fun f => decoder_of (nested f)) fs.

Lemma field_number i f : fs !! i = Some f -> 1 <= number f <= 65535.
Proof.
  intros Hi. unfold lookup_ok in Hl. apply andb_prop in Hl as [[Hinc Hmax]%andb_prop _].
  pose proof (increasing_lookup _ _ _ _ Hinc Hi). rewrite forallb_forall in Hmax.
  assert (number f <= 65535); [|lia].
  apply Z.leb_le, Hmax, list_elem_of_In. by eapply list_elem_of_lookup_2.
Qed.

Lemma select_field_complete next i f : fs !! i = Some f -> select_field fs l next (number f) = Some i.
Proof.
  intros Hi. unfold select_field. pose proof (find_field_complete fs l i f Hl Hlen Hi) as Hf.
  destruct (fs !! next) as [g|] eqn:Hg; [|done].
  destruct (Z.eqb_spec (number g) (number f)) as [He|]; [|done].
  f_equal. unfold lookup_ok in Hl. apply andb_prop in Hl as [[Hinc _]%andb_prop _].
  by eapply increasing_inj.
Qed.

(** One round of the loop on a field of the table. *)
Lemma decode_loop_step k next out i f s s' rest' rest :
  fs !! i = Some f -> field_shape wf_desc f -> out !! i = Some s ->
  decode_slot f (decoder_of (nested f)) rest' s = (Ok rest, s') ->
  decode_loop fs l decs (S k) (wlc_putv (number f * 8 + wire f) ++ rest') next out =
  decode_loop fs l decs k rest (S i) (<[i:=s']> out).
Proof.
  intros Hi Hsh Ho Hd. pose proof (field_number i f Hi) as Hnum.
  pose proof (wire_cases f Hsh) as Hw.
  destruct (putv_nonempty (number f * 8 + wire f)) as (b & lb & Hb).
  cbn [decode_loop]. rewrite getv_putv by (unfold in_u; lia).
  rewrite Hb. cbn [app]. rewrite decode_key_enc by done. unfold decode_field.
  rewrite (select_field_complete next i f Hi), Hi, Ho, Z.eqb_refl. cbn [negb].
  unfold decs. rewrite list_lookup_fmap, Hi. cbn [fmap option_fmap option_map default id].
  by rewrite Hd, (shape_single _ _ Hsh).
Qed.

Lemma decode_loop_enc : forall post slots pre cpre next fuel n k,
  fs = pre ++ post -> length cpre = length pre ->
  forallb (wf_field wf_desc) post = true ->
  Forall (fun f => nested_all decodes (nested f)) post ->
  valid_fields valid post slots = true ->
  measure_fields wlc_measure false post slots n = Ok k ->
  (length (enc_fields enc post slots) <= fuel)%nat ->
  decode_loop fs l decs fuel (enc_fields enc post slots) next
    (cpre ++ clear_fields wlc_clear post []) =
  (WL_CODEC_OK, cpre ++ canon_fields canon post slots).
Proof.
  induction post as [|f post IH]; intros [|s slots] pre cpre next fuel n k Hfs Hcp Hwf Hdec Hv Hm Hk;
    try done; [by destruct fuel|].
  cbn [forallb valid_fields measure_fields enc_fields canon_fields clear_fields head tail] in *.
  apply andb_prop in Hwf as [Hf Hwf]. apply andb_prop in Hv as [Hs Hv].
  apply res_bind_ok in Hm as (n1 & Hm1 & Hm). apply Forall_cons_1 in Hdec as [Hnf Hdec].
  assert (fs !! length pre = Some f) as Hi by (rewrite Hfs; by apply list_lookup_middle).
  assert (fs = (pre ++ [f]) ++ post) as Hfs' by (by rewrite <- app_assoc).
  replace (cpre ++ canon_slot canon f s :: canon_fields canon post slots)
    with ((cpre ++ [canon_slot canon f s]) ++ canon_fields canon post slots)
    by (by rewrite <- app_assoc).
  destruct (slot_has s) eqn:Hh.
  - destruct (decode_slot_enc f s (enc_fields enc post slots) n n1 (wf_field_shape _ _ Hf) Hs Hh Hnf Hm1)
      as (lv & He & Hd).
    rewrite He in *. rewrite <- app_assoc in Hk |- *.
    destruct (putv_nonempty (number f * 8 + wire f)) as (b & lb & Hb).
    rewrite !length_app, Hb in Hk. cbn [length] in Hk. destruct fuel as [|fuel]; [lia|].
    erewrite decode_loop_step; [|exact Hi|by apply wf_field_shape| |exact Hd];
      [|by apply list_lookup_middle].
    rewrite insert_app_r_alt, Hcp, Nat.sub_diag by lia. cbn [insert list_insert].
    rewrite (cons_middle _ cpre), app_assoc.
    eapply (IH slots (pre ++ [f])); [done|rewrite !length_app; simpl; lia|done..|lia].
  - assert (enc_slot enc f s = [] /\ canon_slot canon f s = clear_slot wlc_clear f None) as [He ->].
    { unfold valid_slot in Hs. by destruct (card f), s as [[] ?|[] ?|]. }
    rewrite He in *. cbn [app] in *. rewrite (cons_middle _ cpre), app_assoc.
    eapply (IH slots (pre ++ [f])); [done|rewrite !length_app; simpl; lia|done..].
Qed.
End loop.

Lemma decode_enc d : decodes d.
Proof.
  induction d as [fs l IH] using wlc_desc_nested_ind.
  intros Hwf slots n old Hv Hm. cbn [wlc_decode]. unfold decode_body.
  rewrite clear_old by done. pose proof Hwf as (Hl & Hlen & Hwfs)%wf_desc_inv.
  cbn [valid enc canon wlc_clear] in *.
  unfold wlc_measure in Hm. cbn [wlc_measure_impl] in Hm.
  pose proof (decode_loop_enc fs l Hl Hlen fs slots [] [] 0
    (length (enc_fields enc fs slots)) 0 n eq_refl eq_refl Hwfs IH Hv Hm (Nat.le_refl _)) as Hloop.
  match goal with |- context [decode_loop fs l ?decs _ _ _ _] =>
    change decs with (map (fun f => decoder_of (nested f)) fs) end.
  cbn [app] in Hloop. rewrite Hloop.
  by erewrite not_missing.
Qed.
