(* ===== verification/WlcDecoded.v ===== *)
(** * What a decoder accepts

    A struct that [wlc_decode] accepts has its table's type, is canonical, and
    encodes into no more bytes than it was decoded from. *)

From Stdlib Require Import String.
From S2P Require Import Prelude WlcWire WlcSchema WlcCodec WlcHash WlcRoundtrip.

(** ** Accepted values *)

Definition input_ok (l : bytes) : Prop := bytes_ok l /\ Z.of_nat (length l) <= SIZE_MAX.

Lemma input_ok_take n l : input_ok l -> input_ok (take n l).
Proof. intros [Hok Hl]. split; [by apply Forall_take|]. rewrite length_take. lia. Qed.
Lemma input_ok_drop n l : input_ok l -> input_ok (drop n l).
Proof. intros [Hok Hl]. split; [by apply Forall_drop|]. rewrite length_drop. lia. Qed.

Lemma getv_input rest v rest' : input_ok rest -> wlc_getv rest = Ok (v, rest') ->
  input_ok rest' /\ in_u 64 v /\ Z.of_nat (length rest) = Z.of_nat (length rest') + wlc_vsize v.
Proof.
  intros [Hok Hl] Hg. destruct (getv_shorter _ _ _ Hok Hg) as [Hlen Hok'].
  destruct (getv_canonical _ _ _ Hok Hg) as [Hv _]. pose proof (wlc_vsize_bounds v Hv).
  split_and!; [split; [done|lia]|done|done].
Qed.

(** [v] is a value of field [f] that measures, as a decoder stores it. *)
Definition good_value (f : wlc_field) (v : wval) : Prop :=
  valid_value valid f v = true /\ canon_value canon f v = v /\
  (Z.of_nat (length (enc_value enc f v)) <= SIZE_MAX ->
    wlc_body wlc_measure false f v = Ok (Z.of_nat (length (enc_value enc f v)))).

Definition good_slot (f : wlc_field) (s : slot) : Prop :=
  valid_slot valid f s = true /\ canon_slot canon f s = s /\
  match s with SOpt true v => good_value f v | _ => True end.

Definition accepts (d : wlc_desc) : Prop :=
  wf_desc d = true -> forall input old out,
  input_ok input -> wlc_decode d input old = (WL_CODEC_OK, out) ->
  valid d out = true /\ canon d out = out /\
  Z.of_nat (length (enc d out)) <= Z.of_nat (length input) /\
  wlc_measure d out = Ok (Z.of_nat (length (enc d out))).

(** A zigzag varint of at most [w] bits is the one the value encodes to. *)
Lemma uz32_small w v : 1 <= w <= 32 -> in_u w v ->
  in_s w (wlc_uz32 v) /\ zz 32 (wlc_uz32 v) = v.
Proof.
  intros Hw Hv. assert (in_u 32 v) by (eapply in_u_weaken; [|done]; lia).
  change (wlc_uz32 v) with (uzz 32 v). split; [|by apply zz_uzz].
  rewrite uzz_spec by done. unfold in_u, in_s in *.
  assert (2 ^ w = 2 * 2 ^ (w - 1)) by (rewrite <- Z.pow_succ_r by lia; f_equal; lia).
  zcases; Z.to_euclidean_division_equations; lia.
Qed.

Lemma read_varint_sound f v z :
  in_u 64 v -> read_varint_value (kind f) v = Ok z ->
  good_value f (VInt z) /\ enc_value enc f (VInt z) = wlc_putv v.
Proof.
  intros Hv Hr.
  enough (valid_value valid f (VInt z) = true /\ enc_value enc f (VInt z) = wlc_putv v /\
    wlc_body wlc_measure false f (VInt z) = Ok (wlc_vsize v)) as (? & He & Hb).
  { split; [|done]. unfold good_value. split_and!; [done..|]. intros _. rewrite He, wlc_putv_length by done. done. }
  unfold read_varint_value, valid_value, enc_value, wlc_body, in_u in *.
  destruct (kind f); try done; rewrite ?Z.gtb_ltb in Hr;
    try match type of Hr with context [Z.ltb ?a v] => destruct (Z.ltb_spec a v); [done|] end;
    injection Hr as <-.
  1: assert (v = 0 \/ v = 1) as [-> | ->] by lia; done.
  1-3: rewrite wrap_id by (unfold in_u; lia).
  1-4: (rewrite between_u_spec; unfold in_u; split; [lia|done]).
  3, 5: (rewrite wrap_id by (unfold in_u; lia);
     destruct (uz32_small 32 v) as [Hs Hz]; [lia|unfold in_u; lia|];
     unfold wlc_z32; change (Z.lxor _ _) with (zz 32 (wlc_uz32 v)); rewrite Hz;
     rewrite between_s_spec; done).
  3: change (wlc_z64 ?z) with (zz 64 z); change (wlc_uz64 v) with (uzz 64 v);
     rewrite zz_uzz by (done || unfold in_u; lia); rewrite between_s_spec;
     split_and!; [apply uzz_range; [lia|done]|done|done].
  1: destruct (uz32_small 8 v) as [Hs Hz]; [lia|unfold in_u; lia|].
  2: destruct (uz32_small 16 v) as [Hs Hz]; [lia|unfold in_u; lia|].
  1-2: rewrite wrap_id by (unfold in_u; lia); rewrite swrap_id by (done || lia);
    change (wlc_z32 ?z) with (zz 32 z); rewrite Hz, between_s_spec; done.
Qed.

Lemma prefixed_payload v rest :
  input_ok rest -> in_u 64 v -> v <= Z.of_nat (length rest) ->
  Z.of_nat (length (take (Z.to_nat v) rest)) = v /\
  Z.of_nat (length (prefixed (take (Z.to_nat v) rest))) = wlc_vsize v + v /\
  Z.of_nat (length (drop (Z.to_nat v) rest)) = Z.of_nat (length rest) - v.
Proof.
  intros Hok Hv Hle. assert (Z.of_nat (length (take (Z.to_nat v) rest)) = v) as Hl
    by (unfold in_u in Hv; rewrite length_take; lia).
  rewrite prefixed_length, Hl by (by rewrite Hl). rewrite length_drop. unfold in_u in Hv. lia.
Qed.

Lemma wlc_add_fits a b : a + b <= SIZE_MAX -> wlc_add a b = Ok (a + b).
Proof. intros. by apply wlc_add_ok. Qed.

Lemma span_good f v payload :
  (kind f = WLC_BYTES \/ kind f = WLC_STRING /\ wlc_utf8 payload = true) ->
  (max_length f = 0 \/ v <= max_length f) -> in_u 64 v ->
  bytes_ok payload -> Z.of_nat (length payload) = v ->
  good_value f (VSpan (Some payload) v).
Proof.
  intros Hk Hmax Hv Hp Hl. unfold good_value, valid_value, wlc_body, span_body, canon_value, enc_value.
  assert (between_u 64 v && bytes_okb payload && (Z.of_nat (length payload) =? v) = true) as Hval.
  { rewrite !andb_true_iff, between_u_spec, bytes_okb_spec, Z.eqb_eq. done. }
  assert (negb (max_length f =? 0) && (v >? max_length f) = false) as Hm.
  { rewrite Z.gtb_ltb. destruct Hmax as [->|Hmax]; [done|].
    rewrite (proj2 (Z.ltb_ge _ _)) by done. apply andb_false_r. }
  split_and!; [by destruct Hk as [->|[-> _]]|done|].
  change (default [] (Some payload)) with payload.
  rewrite prefixed_length, Hl by (by rewrite Hl). intros Hfit.
  pose proof (wlc_vsize_bounds v Hv).
  destruct Hk as [->|[-> Hu]]; rewrite Hm, andb_false_r, (firstn_all2 payload) by lia;
    [|rewrite Hu]; cbn [andb negb]; (rewrite wlc_add_fits by (unfold in_u in *; lia));
    by rewrite wlc_add_fits by (unfold in_u in *; lia).
Qed.

Lemma message_good f d vs :
  kind f = WLC_MESSAGE -> nested f = Some d -> valid d vs = true -> canon d vs = vs ->
  wlc_measure d vs = Ok (Z.of_nat (length (enc d vs))) -> good_value f (VMsg vs).
Proof.
  intros Hk Hn Hv Hc Hm. unfold good_value, valid_value, wlc_body, canon_value, enc_value.
  rewrite Hk, Hn, Hc, Hm. split_and!; [done..|].
  assert (in_u 64 (Z.of_nat (length (enc d vs))) \/ SIZE_MAX < Z.of_nat (length (enc d vs))) as [Hu|Hu]
    by (unfold in_u, SIZE_MAX; lia).
  - rewrite prefixed_length by done. intros Hfit. cbn [mbind res_bind].
    by rewrite wlc_add_fits.
  - unfold prefixed. rewrite length_app. lia.
Qed.

Lemma read_fixed_sound f rest z rest' :
  input_ok rest -> wlc_read_fixed (kind f) rest = Ok (z, rest') ->
  good_value f (VInt z) /\ input_ok rest' /\
  (length (enc_value enc f (VInt z)) + length rest' <= length rest)%nat.
Proof.
  intros Hok. unfold wlc_read_fixed.
  destruct (Nat.ltb_spec (length rest) match kind f with WLC_F32 | WLC_FLOAT32 => 4 | _ => 8 end) as [|Hlen];
    [done|].
  intros Hr. unfold good_value, valid_value, wlc_body, enc_value.
  assert (forall n, bytes_ok (take n rest)) as Ht by (intros n; by apply input_ok_take).
  destruct (kind f); try done; injection Hr as <- <-; (split; [split_and!; [|done|done]
      |split; [by apply input_ok_drop|rewrite length_drop, ?put32_length, ?put64_length; lia]]);
    rewrite between_u_spec; first [by apply wrap_range|by apply be_range].
Qed.

Lemma max_length_ok (f : wlc_field) u k :
  k <> WLC_MESSAGE ->
  bool_decide (k <> WLC_MESSAGE) && negb (max_length f =? 0) && (max_length f <? u) = false ->
  max_length f = 0 \/ u <= max_length f.
Proof.
  intros Hk. rewrite bool_decide_true by done. cbn [andb].
  destruct (Z.eqb_spec (max_length f) 0); [by left|]. cbn [negb andb].
  destruct (Z.ltb_spec (max_length f) u); [done|by right].
Qed.

Lemma read_value_sound f rest old rest' v :
  nested_wf f -> nested_all accepts (nested f) -> input_ok rest ->
  wlc_read_value f (decoder_of (nested f)) rest old = (Ok rest', v) ->
  good_value f v /\ input_ok rest' /\
  (length (enc_value enc f v) + length rest' <= length rest)%nat.
Proof.
  intros Hwf Hn Hok. unfold wlc_read_value.
  assert (forall k, kind f = k -> (match wlc_read_fixed k rest with
      | Ok (z, r) => (Ok r, VInt z) | Err s => (Err s, old) end) = (Ok rest', v) ->
    good_value f v /\ input_ok rest' /\ (length (enc_value enc f v) + length rest' <= length rest)%nat)
    as Hfixed.
  { intros k <-. destruct (wlc_read_fixed (kind f) rest) as [[z r]|] eqn:Hr; [|done].
    intros [= <- <-]. by apply read_fixed_sound. }
  destruct (kind f) eqn:Hk; try (by eapply Hfixed); clear Hfixed;
    destruct (wlc_getv rest) as [[u r]|] eqn:Hg; try done;
    destruct (getv_input _ _ _ Hok Hg) as (Hr & Hu & Hlen).
  all: try (destruct (read_varint_value _ u) as [z|] eqn:Hz; [|done]; intros [= <- <-];
    rewrite <- Hk in Hz; destruct (read_varint_sound f u z Hu Hz) as [Hgood He];
    rewrite He; split_and!; [done|by destruct Hr..|];
    pose proof (wlc_putv_length u Hu); lia).
  all: destruct (bool_decide _ && _ && _) eqn:Hmax; [done|]; rewrite Z.gtb_ltb in *;
    (destruct (Z.ltb_spec (Z.of_nat (length r)) u) as [|Hle]; [done|]);
    destruct (prefixed_payload u r Hr Hu Hle) as (Hp & Hpre & Hdrop);
    pose proof (input_ok_take (Z.to_nat u) r Hr) as [Hpok Hpl];
    pose proof (input_ok_drop (Z.to_nat u) r Hr) as Hrest.
  - intros [= <- <-]. split_and!; [|done|unfold enc_value; cbn [default from_option id]; lia].
    apply span_good; [by left|by eapply max_length_ok; [|exact Hmax]|done|done|done].
  - destruct (wlc_utf8 _) eqn:Hutf; [|done]. intros [= <- <-].
    split_and!; [|done|unfold enc_value; cbn [default from_option id]; lia].
    apply span_good; [by right|by eapply max_length_ok; [|exact Hmax]|done|done|done].
  - destruct (nested f) as [d|] eqn:Hd; [|done]. cbn [decoder_of].
    destruct (wlc_decode d _ _) as [st vs] eqn:Hdec. destruct st; try done. intros [= <- <-].
    unfold nested_wf in Hwf. rewrite Hd in Hwf.
    destruct (Hn (Hwf Hk) _ _ _ (conj Hpok Hpl) Hdec) as (Hv & Hc & Hl & Hm).
    split_and!; [by eapply message_good|done|]. unfold enc_value. rewrite Hd.
    assert (in_u 64 (Z.of_nat (length (enc d vs)))) by (unfold in_u, SIZE_MAX in *; lia).
    pose proof (prefixed_length (enc d vs) ltac:(done)).
    pose proof (wlc_vsize_mono (Z.of_nat (length (enc d vs))) u Hu ltac:(lia)). lia.
Qed.

(** ** An error is never [WL_CODEC_OK] *)

Definition proper {A} (r : codec A) : Prop := r <> Err WL_CODEC_OK.

Ltac proper_err := unfold proper in *; cbn in *; congruence.

Lemma proper_bind {A B} (m : codec A) (k : A -> codec B) :
  proper m -> (forall a, proper (k a)) -> proper (mbind k m).
Proof. unfold proper. destruct m; cbn; [auto|congruence]. Qed.

Lemma getv_loop_proper rest : forall n v, proper (wlc_getv_loop rest n v).
Proof.
  induction rest as [|b rest IH]; intros n v; [done|]. cbn [wlc_getv_loop].
  repeat case_match; first [done|apply IH].
Qed.
Lemma getv_proper rest : proper (wlc_getv rest).
Proof. apply getv_loop_proper. Qed.

Lemma packed_bytes_proper f : proper (wlc_packed_bytes f).
Proof. unfold wlc_packed_bytes. by destruct (_ && _). Qed.

Lemma skip_proper w rest : proper (wlc_skip w rest).
Proof.
  unfold wlc_skip.
  destruct (w =? 0); [by apply proper_bind; [apply getv_proper|intros []]|].
  destruct (w =? 1); [by destruct (_ <? _)|]. destruct (w =? 5); [by destruct (_ <? _)|].
  destruct (negb _); [done|]. apply proper_bind; [apply getv_proper|].
  intros []. by destruct (_ >? _).
Qed.

Lemma decode_key_proper key : proper (decode_key key).
Proof. unfold decode_key. by destruct (_ || _). Qed.

Lemma read_packed_proper f rest : proper (wlc_read_packed f rest).
Proof.
  apply proper_bind; [apply getv_proper|]. intros [u r].
  apply proper_bind; [apply packed_bytes_proper|]. intros e.
  destruct (_ || _); [done|]. by destruct (kind f).
Qed.

Lemma read_varint_proper k v : proper (read_varint_value k v).
Proof. unfold read_varint_value. destruct k; try done; by destruct (_ >? _). Qed.

Lemma read_value_proper f dec rest old : proper (fst (wlc_read_value f dec rest old)).
Proof.
  unfold wlc_read_value, wlc_read_fixed. pose proof (getv_proper rest) as Hg.
  destruct (kind f) eqn:Hk;
    try (by destruct (_ <? _)%nat);
    (destruct (wlc_getv rest) as [[u r]|e]; [|proper_err]);
    try (pose proof (read_varint_proper (kind f) u) as Hr; rewrite Hk in Hr;
         destruct (read_varint_value _ u); [done|proper_err]);
    (destruct (_ && _ && _); [done|]); (destruct (_ >? _); [done|]); [done|by destruct (wlc_utf8 _)|].
  destruct dec as [dec|]; [|done]. by destruct (dec _ _) as [[]].
Qed.

Lemma decode_slot_proper f dec rest s : proper (fst (decode_slot f dec rest s)).
Proof.
  unfold decode_slot. destruct (card f), s as [h v|h es|st c cap]; try done.
  - destruct h; [done|]. pose proof (read_value_proper f dec rest v) as H.
    destruct (wlc_read_value f dec rest v) as [[] ?]; [done|proper_err].
  - destruct (_ >=? _); [done|]. destruct st as [vs|]; [|done].
    pose proof (read_value_proper f dec rest (default (VMsg []) (vs !! Z.to_nat c))) as H.
    destruct (wlc_read_value f dec rest _) as [[] ?]; [done|proper_err].
  - destruct h; [done|]. pose proof (read_packed_proper f rest) as H.
    destruct (wlc_read_packed f rest) as [[]|]; [done|proper_err].
Qed.

Lemma decode_field_proper fs l decs n w rest next out :
  proper (fst (decode_field fs l decs n w rest next out)).
Proof.
  unfold decode_field. destruct (select_field fs l next n) as [i|].
  - destruct (fs !! i) as [f|]; [|done]. destruct (out !! i) as [s|]; [|done].
    destruct (negb _); [done|].
    pose proof (decode_slot_proper f (default None (decs !! i)) rest s) as H.
    destruct (decode_slot f _ rest s) as [[] ?]; [done|proper_err].
  - pose proof (skip_proper w rest) as H. destruct (wlc_skip w rest); [done|proper_err].
Qed.

(** ** Accepted members *)

Lemma read_words_sound size count rest ws rest' :
  bytes_ok rest -> read_words size count rest = (ws, rest') ->
  (size * count <= length rest)%nat -> (size = 4%nat \/ size = 8%nat) ->
  length ws = count /\ Forall (in_u (8 * Z.of_nat size)) ws /\ rest' = drop (size * count) rest.
Proof.
  revert rest ws. induction count as [|k IH]; intros rest ws Hok Hr Hlen Hs; cbn [read_words] in Hr.
  - injection Hr as <- <-. by rewrite Nat.mul_0_r.
  - destruct (read_words size k (drop size rest)) as [ws' r] eqn:Hr'. injection Hr as <- <-.
    apply IH in Hr' as (Hl & Hf & ->); [|by apply Forall_drop|rewrite length_drop; lia|done].
    split_and!; [by cbn [length]; rewrite Hl| |rewrite drop_drop; f_equal; lia].
    constructor; [|done].
    assert (bytes_ok (take size rest)) by (by apply Forall_take).
    destruct Hs as [-> | ->]; [apply be_range_32|apply be_range]; try done.
    rewrite length_take. lia.
Qed.

Lemma read_packed_sound f rest elems rest' :
  field_shape wf_desc f -> card f = WLC_PACKED -> input_ok rest ->
  wlc_read_packed f rest = Ok (elems, rest') ->
  valid_slot valid f (SPacked true elems) = true /\ input_ok rest' /\
  (length (prefixed (concat (map (enc_word f) elems))) + length rest' <= length rest)%nat.
Proof.
  intros Hsh Hc Hok. destruct (packed_bytes_ok f wf_desc Hsh Hc) as (Hpb & Hb & He).
  unfold wlc_read_packed. rewrite Hpb. intros ([u r] & Hg & Hr)%res_bind_ok.
  destruct (getv_input _ _ _ Hok Hg) as (Hrok & Hu & Hlen). cbn [mbind res_bind] in Hr.
  destruct (Z.eqb_spec u (element f * packed_count f)) as [->|]; [|done].
  rewrite Z.gtb_ltb in Hr. destruct (Z.ltb_spec (Z.of_nat (length r)) (element f * packed_count f)) as [|Hle];
    [done|].
  cbn [negb orb] in Hr.
  destruct Hsh as [|_ _ Hp Hk]; [congruence|].
  assert (read_words (Z.to_nat (element f)) (Z.to_nat (packed_count f)) r = (elems, rest')) as Hw.
  { destruct Hk as [[[Hk|Hk] He']|[[Hk|Hk] He']]; rewrite Hk in Hr; rewrite He'; by injection Hr. }
  apply read_words_sound in Hw as (Hl & Hf & ->); [|by destruct Hrok|nia|lia].
  rewrite Z2Nat.id in Hf by lia.
  assert (Z.of_nat (length elems) = packed_count f) as Hl' by lia.
  split_and!; [|by apply input_ok_drop|].
  - unfold valid_slot. rewrite Hc, Hl', Z.eqb_refl. cbn [andb].
    apply (forallb_Forall _ (in_u (8 * element f))); [|done]. intros; apply between_u_spec.
  - pose proof (enc_words_length f elems He) as Hw. rewrite Hl' in Hw.
    pose proof (prefixed_length (concat (map (enc_word f) elems))) as Hpl.
    rewrite Hw in Hpl. specialize (Hpl ltac:(unfold in_u; lia)).
    rewrite length_drop. nia.
Qed.

Lemma decode_slot_sound f s rest rest' s' :
  field_shape wf_desc f -> nested_all accepts (nested f) -> field_facts f ->
  good_slot f s -> input_ok rest ->
  decode_slot f (decoder_of (nested f)) rest s = (Ok rest', s') ->
  good_slot f s' /\ input_ok rest' /\ enc_slot enc f s = [] /\
  (length (enc_slot enc f s') + length rest' <= Z.to_nat (key_size f) + length rest)%nat.
Proof.
  intros Hsh Hn Hff (Hv & _ & _) Hok Hd. unfold decode_slot, valid_slot in *.
  pose proof (key_length f Hff) as Hkey.
  destruct (card f) eqn:Hc; destruct s as [h v|h elems|]; try done; destruct h; try done.
  - destruct (wlc_read_value f _ rest v) as [[r|] v'] eqn:Hr; [|done]. injection Hd as <- <-.
    apply read_value_sound in Hr as (Hg & Hr & Hlen); [|by apply shape_nested_wf|done..].
    split_and!; [|done|done|cbn [enc_slot]; rewrite length_app; lia].
    destruct Hg as (? & Hcanon & ?). unfold good_slot, valid_slot, canon_slot.
    rewrite Hc, Hcanon. done.
  - destruct (wlc_read_packed f rest) as [[es r]|] eqn:Hr; [|done]. injection Hd as <- <-.
    apply read_packed_sound in Hr as (Hg & Hr & Hlen); [|done..].
    split_and!; [done|done|done|cbn [enc_slot]; rewrite length_app; lia].
Qed.

Lemma skip_sound w rest rest' :
  input_ok rest -> wlc_skip w rest = Ok rest' ->
  input_ok rest' /\ (length rest' <= length rest)%nat.
Proof.
  intros Hok. unfold wlc_skip.
  assert (forall v r, wlc_getv rest = Ok (v, r) -> input_ok r /\ (length r <= length rest)%nat) as Hg.
  { intros v r Hg. destruct (getv_input _ _ _ Hok Hg) as (? & Hv & ?).
    pose proof (wlc_vsize_bounds v Hv). split; [done|lia]. }
  assert (forall n r, input_ok r -> (length r <= length rest)%nat ->
    input_ok (drop n r) /\ (length (drop n r) <= length rest)%nat) as Hdrop.
  { intros n r Hr Hl. split; [by apply input_ok_drop|rewrite length_drop; lia]. }
  destruct (w =? 0); [|destruct (w =? 1); [|destruct (w =? 5); [|destruct (w =? 2); [|done]]]].
  - intros ([v r] & Hr & [= <-])%res_bind_ok. by eapply Hg.
  - destruct (_ <? _); [done|]. intros [= <-]. by apply Hdrop.
  - destruct (_ <? _); [done|]. intros [= <-]. by apply Hdrop.
  - cbn [negb]. intros ([v r] & Hr & H)%res_bind_ok. destruct (v >? _); [done|].
    injection H as <-. destruct (Hg _ _ Hr). by apply Hdrop.
Qed.

Lemma decode_key_sound key n w : in_u 64 key -> decode_key key = Ok (n, w) ->
  key = n * 8 + w /\ 0 < n <= 65535 /\ 0 <= w < 8.
Proof.
  unfold in_u, decode_key. rewrite land_7, Z.shiftr_div_pow2 by lia. change (2 ^ 3) with 8.
  intros Hk. rewrite Z.gtb_ltb.
  destruct (Z.eqb_spec (key / 8) 0); [done|]. destruct (Z.ltb_spec 65535 (key / 8)); [done|].
  cbn [orb]. destruct (_ && _); [done|]. intros [= <- <-].
  Z.to_euclidean_division_equations. lia.
Qed.

(** Replacing an empty member adds its encoding. *)
Lemma enc_fields_insert fs : forall out i f s s',
  fs !! i = Some f -> out !! i = Some s -> enc_slot enc f s = [] ->
  length (enc_fields enc fs (<[i:=s']> out)) =
  (length (enc_fields enc fs out) + length (enc_slot enc f s'))%nat.
Proof.
  induction fs as [|g fs IH]; intros [|x out] [|i] f s s' Hf Hs He; try done;
    [change (<[0%nat:=s']> (x :: out)) with (s' :: out)
    |change (<[S i:=s']> (x :: out)) with (x :: <[i:=s']> out)];
    cbn [enc_fields]; rewrite !length_app.
  - injection Hf as ->. injection Hs as ->. rewrite He. cbn [length]. lia.
  - cbn in Hf, Hs. rewrite (IH out i f s s') by done. lia.
Qed.

Section accepted.
Variables (fs : list wlc_field) (l : wlc_lookup).
Hypothesis Hl : lookup_ok fs l = true.
Hypothesis Hlen : Z.of_nat (length fs) <= 65535.
Hypothesis Hwf : forallb (wf_field wf_desc) fs = true.
Hypothesis Hacc : Forall (fun f => nested_all accepts (nested f)) fs.
Let decs := map (fun f => decoder_of (nested f)) fs.

Lemma select_field_sound next n i :
  0 < n <= 65535 -> select_field fs l next n = Some i ->
  exists f, fs !! i = Some f /\ number f = n.
Proof.
  intros Hn. unfold select_field.
  assert (wlc_find_field fs l n = Some i -> exists f, fs !! i = Some f /\ number f = n) as Hfind
    by (apply find_field_some; [done|done|lia]).
  destruct (fs !! next) as [g|] eqn:Hg; [|done].
  destruct (Z.eqb_spec (number g) n); [|done]. intros [= <-]. by exists g.
Qed.

Definition inv (total : nat) (out : wstruct) (rest : bytes) : Prop :=
  Forall2 good_slot fs out /\ input_ok rest /\
  (length (enc_fields enc fs out) + length rest <= total)%nat.

Lemma decode_field_inv key n w rest next out total rest' next' out' :
  in_u 64 key -> decode_key key = Ok (n, w) ->
  inv total out rest ->
  (length (enc_fields enc fs out) + length (wlc_putv key) + length rest <= total)%nat ->
  decode_field fs l decs n w rest next out = (Ok (rest', next'), out') -> inv total out' rest'.
Proof.
  intros Hk Hkey (Hgood & Hok & _) Htot. destruct (decode_key_sound _ _ _ Hk Hkey) as (-> & Hn & Hw).
  unfold decode_field. destruct (select_field fs l next n) as [i|] eqn:Hsel.
  - destruct (select_field_sound _ _ _ Hn Hsel) as (f & Hi & Hnum). rewrite Hi.
    destruct (out !! i) as [s|] eqn:Hs; [|done].
    destruct (Z.eqb_spec w (wire f)) as [->|]; [|done]. cbn [negb].
    unfold decs. rewrite list_lookup_fmap, Hi. cbn [fmap option_fmap option_map default id].
    destruct (decode_slot f _ rest s) as [[r|] s'] eqn:Hd; [|done]. intros [= <- <- <-].
    pose proof (proj1 (forallb_forall _ _) Hwf f) as Hf.
    specialize (Hf ltac:(apply list_elem_of_In; by eapply list_elem_of_lookup_2)).
    apply decode_slot_sound in Hd as (Hg & Hr & He & Hlen');
      [|by apply wf_field_shape|by eapply Forall_lookup_1 in Hacc|by eapply wf_field_facts
       |by eapply Forall2_lookup_lr|done].
    subst n. pose proof (key_length f (wf_field_facts _ _ Hf)).
    unfold inv. rewrite (enc_fields_insert fs out i f s s' Hi Hs He).
    split_and!; [|done|lia].
    rewrite <- (list_insert_id fs i f Hi). by apply Forall2_insert.
  - destruct (wlc_skip w rest) as [r|] eqn:Hskip; [|done]. intros [= <- <- <-].
    destruct (skip_sound _ _ _ Hok Hskip). split_and!; [done|done|lia].
Qed.

Lemma decode_loop_inv total fuel : forall rest next out out',
  inv total out rest -> decode_loop fs l decs fuel rest next out = (WL_CODEC_OK, out') ->
  inv total out' [].
Proof.
  induction fuel as [|k IH]; intros [|b rest] next out out' Hinv Hd; cbn [decode_loop] in Hd;
    try (by injection Hd as <-); [done|].
  pose proof Hinv as (Hgood & Hok & Htot).
  pose proof (getv_proper (b :: rest)) as Hgp.
  destruct (wlc_getv (b :: rest)) as [[key r]|] eqn:Hg; [|proper_err].
  destruct (getv_input _ _ _ Hok Hg) as (Hr & Hk & Hlk).
  pose proof (wlc_putv_length key Hk).
  pose proof (decode_key_proper key) as Hkp.
  destruct (decode_key key) as [[n w]|] eqn:Hkey; [|proper_err].
  pose proof (decode_field_proper fs l decs n w r next out) as Hfp.
  destruct (decode_field fs l decs n w r next out) as [[[r' next']|] out1] eqn:Hf;
    [|proper_err].
  eapply IH; [|exact Hd]. eapply decode_field_inv; [done|exact Hkey| |..|exact Hf].
  - split_and!; [done|done|]. unfold inv in Hinv. lia.
  - lia.
Qed.
End accepted.

Lemma measure_field_good f s n :
  field_facts f -> field_shape wf_desc f -> good_slot f s ->
  negb (required f =? 0) && negb (slot_has s) = false ->
  n + Z.of_nat (length (enc_slot enc f s)) <= SIZE_MAX -> 0 <= n ->
  measure_field wlc_measure false f s n = Ok (n + Z.of_nat (length (enc_slot enc f s))).
Proof.
  intros Hff Hsh (Hv & _ & Hg) Hreq Hfit Hn. pose proof (key_length f Hff) as Hkey.
  pose proof (ff_size f Hff).
  unfold measure_field, valid_slot in *.
  destruct (card f) eqn:Hc; destruct s as [[] v|[] elems|]; try done;
    cbn [slot_has negb enc_slot] in *;
    try (rewrite andb_true_r in Hreq; rewrite Hreq; cbn [length]; f_equal; lia).
  - destruct Hg as (_ & _ & Hb). rewrite length_app, Nat2Z.inj_add, Hkey in *.
    cbn [measure_elements]. rewrite Hb by lia. cbn [mbind res_bind].
    rewrite wlc_add_fits by lia. cbn [mbind res_bind]. rewrite wlc_add_fits by lia.
    cbn [mbind res_bind]. f_equal. lia.
  - destruct (packed_bytes_ok f wf_desc Hsh Hc) as (-> & Hb & He). cbn [mbind res_bind].
    apply andb_prop in Hv as [Hl%Z.eqb_eq _].
    pose proof (enc_words_length f elems He) as Hw. rewrite Hl in Hw.
    pose proof (prefixed_length (concat (map (enc_word f) elems))) as Hpl.
    rewrite Hw in Hpl. specialize (Hpl ltac:(unfold in_u; lia)).
    pose proof (wlc_vsize_bounds (element f * packed_count f) ltac:(unfold in_u; lia)).
    rewrite length_app, Nat2Z.inj_add, Hkey in *.
    rewrite wlc_add_fits by lia. cbn [mbind res_bind]. rewrite wlc_add_fits by lia.
    cbn [mbind res_bind]. rewrite wlc_add_fits by lia. f_equal. lia.
Qed.

Lemma measure_fields_good fs : forall out n,
  forallb (wf_field wf_desc) fs = true -> Forall2 good_slot fs out ->
  missing_required fs out = false -> 0 <= n ->
  n + Z.of_nat (length (enc_fields enc fs out)) <= SIZE_MAX ->
  measure_fields wlc_measure false fs out n = Ok (n + Z.of_nat (length (enc_fields enc fs out))).
Proof.
  unfold missing_required.
  induction fs as [|f fs IH]; intros out n Hwf Hg Hm Hn Hfit;
    apply Forall2_cons_inv_l in Hg as (s & out' & Hs & Hg & ->) || apply Forall2_nil_inv_l in Hg as ->;
    cbn [measure_fields enc_fields forallb zip zip_with existsb] in *; [cbn [length]; f_equal; lia|].
  apply andb_prop in Hwf as [Hf Hwf]. apply orb_false_elim in Hm as [Hreq Hm].
  rewrite length_app in Hfit |- *.
  rewrite measure_field_good by first [by eapply wf_field_facts|by apply wf_field_shape|done|lia].
  cbn [mbind res_bind]. rewrite IH by (done || lia). f_equal. lia.
Qed.

Lemma good_fields fs : forall out, Forall2 good_slot fs out ->
  valid_fields valid fs out = true /\ canon_fields canon fs out = out.
Proof.
  induction fs as [|f fs IH]; intros out Hg;
    apply Forall2_cons_inv_l in Hg as (s & out' & (Hv & Hc & _) & Hg & ->)
      || apply Forall2_nil_inv_l in Hg as ->; [done|].
  cbn [valid_fields canon_fields]. destruct (IH _ Hg) as [-> ->]. by rewrite Hv, Hc.
Qed.

(** ** Cleared structs are of the table's type *)

Definition clears (d : wlc_desc) : Prop := wf_desc d = true -> valid d (wlc_clear d []) = true.

Lemma clear_slot_good f :
  field_facts f -> field_shape wf_desc f -> nested_all clears (nested f) ->
  good_slot f (clear_slot wlc_clear f None).
Proof.
  intros Hff Hsh Hn. split; [|split; [by unfold canon_slot, clear_slot; destruct (card f)|
    by unfold clear_slot; destruct (card f)]].
  pose proof (shape_nested_wf f Hsh) as Hnw. unfold nested_wf in Hnw.
  pose proof (ff_signed f Hff). pose proof (ff_unsigned f Hff).
  unfold clear_slot, valid_slot, valid_value, scalar_default.
  destruct Hsh as [-> _ Hs| -> _ Hp Hk].
  - destruct (kind f) eqn:Hk;
      try (rewrite between_u_spec; first [done | by apply wrap_range | by destruct (_ =? _)]);
      try (rewrite between_s_spec; first [done | by apply swrap_range]); try done.
    + by destruct Hs as [-> ->].
    + destruct (nested f) as [d|]; [|done]. by apply Hn, Hnw.
  - rewrite repeat_length, Z2Nat.id, Z.eqb_refl by lia. cbn [andb].
    apply forallb_forall. intros z Hz%repeat_spec. subst z. apply between_u_spec.
    unfold in_u. destruct Hk as [[_ ->]|[_ ->]]; cbn; lia.
Qed.

Lemma clear_good fs :
  forallb (wf_field wf_desc) fs = true -> Forall (fun f => nested_all clears (nested f)) fs ->
  Forall2 good_slot fs (clear_fields wlc_clear fs []).
Proof.
  intros Hwf Hn. induction Hn as [|f fs Hf _ IH]; [constructor|].
  cbn [forallb clear_fields head tail] in *. apply andb_prop in Hwf as [Hff Hwf].
  constructor; [|by apply IH].
  apply clear_slot_good; [by eapply wf_field_facts|by apply wf_field_shape|done].
Qed.

Lemma clear_valid d : clears d.
Proof.
  induction d as [fs l IH] using wlc_desc_nested_ind. intros (_ & _ & Hwf)%wf_desc_inv.
  cbn [valid wlc_clear]. by apply (good_fields fs), clear_good.
Qed.

Lemma clear_enc_nil fs : enc_fields enc fs (clear_fields wlc_clear fs []) = [].
Proof.
  induction fs as [|f fs IH]; [done|]. cbn [clear_fields enc_fields head tail]. rewrite IH.
  unfold clear_slot. by destruct (card f).
Qed.

(** ** The decoder only accepts encodings *)

Lemma decode_accepts d : accepts d.
Proof.
  induction d as [fs l IH] using wlc_desc_nested_ind. intros Hwf input old out Hin Hd.
  pose proof Hwf as (Hl & Hlen & Hwfs)%wf_desc_inv.
  cbn [wlc_decode] in Hd. unfold decode_body in Hd. rewrite clear_old in Hd by done.
  match type of Hd with context [decode_loop fs l ?decs _ _ _ _] =>
    change decs with (map (fun f => decoder_of (nested f)) fs) in Hd end.
  destruct (decode_loop _ _ _ _ _ _ _) as [st out1] eqn:Hloop.
  destruct st; try done. destruct (missing_required fs out1) eqn:Hmiss; [done|].
  injection Hd as <-.
  apply (decode_loop_inv fs l Hl Hlen Hwfs IH (length input)) in Hloop as (Hg & _ & Htot).
  - cbn [valid canon enc]. unfold wlc_measure. cbn [wlc_measure_impl].
    destruct (good_fields fs out1 Hg) as [-> ->]. destruct Hin as [_ Hmax].
    cbn [length] in Htot. rewrite Nat.add_0_r in Htot.
    split_and!; [done|done|lia|].
    change (wlc_measure_impl false) with wlc_measure. by rewrite measure_fields_good by (done || lia).
  - unfold inv. cbn [wlc_clear]. rewrite clear_enc_nil. split_and!; [|done|done].
    apply clear_good; [done|]. clear. induction fs as [|f fs IH]; constructor; [|done].
    destruct (nested f) as [d|]; [apply clear_valid|done].
Qed.

(** ** Termination of the decoding loop *)

Lemma read_fixed_shorter k rest z rest' : bytes_ok rest -> wlc_read_fixed k rest = Ok (z, rest') ->
  bytes_ok rest' /\ (length rest' <= length rest)%nat.
Proof.
  intros Hok. unfold wlc_read_fixed. destruct (_ <? _)%nat; [done|].
  destruct k; try done; intros [= _ <-]; (split; [by apply Forall_drop|rewrite length_drop; lia]).
Qed.

Lemma getv_shorter' rest v rest' : bytes_ok rest -> wlc_getv rest = Ok (v, rest') ->
  bytes_ok rest' /\ (length rest' < length rest)%nat.
Proof.
  intros Hok Hg. destruct (getv_shorter _ _ _ Hok Hg) as [Hl Hok'].
  destruct (getv_canonical _ _ _ Hok Hg) as [Hv _]. pose proof (wlc_vsize_bounds v Hv).
  split; [done|lia].
Qed.

Lemma read_value_shorter f dec rest old rest' v :
  bytes_ok rest -> wlc_read_value f dec rest old = (Ok rest', v) ->
  bytes_ok rest' /\ (length rest' <= length rest)%nat.
Proof.
  intros Hok. unfold wlc_read_value.
  pose proof (read_fixed_shorter (kind f) rest) as Hf.
  assert (forall u r, wlc_getv rest = Ok (u, r) -> bytes_ok r /\ (length r <= length rest)%nat) as Hg
    by (intros u r Hg; apply getv_shorter' in Hg as [? ?]; [split; [done|lia]|done]).
  assert (forall n r, bytes_ok r /\ (length r <= length rest)%nat ->
    bytes_ok (drop n r) /\ (length (drop n r) <= length rest)%nat) as Hdrop.
  { intros n r [? ?]. split; [by apply Forall_drop|rewrite length_drop; lia]. }
  destruct (kind f) eqn:Hk;
    try (destruct (wlc_read_fixed _ rest) as [[z r]|] eqn:Hr; [|done];
         intros [= <- <-]; by eapply Hf);
    (destruct (wlc_getv rest) as [[u r]|] eqn:Hgv; [|done]); specialize (Hg u r eq_refl);
    try (destruct (read_varint_value _ u); [|done]; intros [= <- <-]; done);
    (destruct (_ && _ && _); [done|]); (destruct (_ >? _); [done|]).
  - intros [= <- <-]. by apply Hdrop.
  - destruct (negb _); [done|]. intros [= <- <-]. by apply Hdrop.
  - destruct dec as [dec|]; [|done]. destruct (dec _ _) as [[] vs]; try done.
    intros [= <- <-]. by apply Hdrop.
Qed.

Lemma read_words_shorter size count rest ws rest' :
  bytes_ok rest -> read_words size count rest = (ws, rest') ->
  bytes_ok rest' /\ (length rest' <= length rest)%nat.
Proof.
  revert rest ws. induction count as [|k IH]; intros rest ws Hok; cbn [read_words].
  - by intros [= _ <-].
  - destruct (read_words size k (drop size rest)) as [ws' r] eqn:Hr. intros [= _ <-].
    apply IH in Hr as [? Hl]; [|by apply Forall_drop]. rewrite length_drop in Hl. split; [done|lia].
Qed.

Lemma read_packed_shorter f rest elems rest' :
  bytes_ok rest -> wlc_read_packed f rest = Ok (elems, rest') ->
  bytes_ok rest' /\ (length rest' <= length rest)%nat.
Proof.
  intros Hok. unfold wlc_read_packed. intros ([u r] & Hg & Hr)%res_bind_ok.
  apply getv_shorter' in Hg as [Hrok Hl]; [|done].
  apply res_bind_ok in Hr as (e & _ & Hr). destruct (_ || _); [done|].
  assert (forall size count, read_words size count r = (elems, rest') ->
    bytes_ok rest' /\ (length rest' <= length rest)%nat) as Hw
    by (intros size count ?%read_words_shorter; [split; [tauto|lia]|done]).
  destruct (kind f); try done; injection Hr as Hr; by eapply Hw.
Qed.

Lemma decode_slot_shorter f dec rest s rest' s' :
  bytes_ok rest -> decode_slot f dec rest s = (Ok rest', s') ->
  bytes_ok rest' /\ (length rest' <= length rest)%nat.
Proof.
  intros Hok. unfold decode_slot. destruct (card f), s as [h v|h es|st c cap]; try done.
  - destruct h; [done|]. destruct (wlc_read_value f dec rest v) as [[r|] v'] eqn:Hr; [|done].
    intros [= <- _]. by eapply read_value_shorter.
  - destruct (_ >=? _); [done|]. destruct st as [vs|]; [|done].
    destruct (wlc_read_value f dec rest _) as [[r|] v'] eqn:Hr; [|done].
    intros [= <- _]. by eapply read_value_shorter.
  - destruct h; [done|]. destruct (wlc_read_packed f rest) as [[e r]|] eqn:Hr; [|done].
    intros [= <- _]. by eapply read_packed_shorter.
Qed.

Lemma skip_shorter w rest rest' :
  bytes_ok rest -> wlc_skip w rest = Ok rest' -> bytes_ok rest' /\ (length rest' <= length rest)%nat.
Proof.
  intros Hok. unfold wlc_skip.
  assert (forall n r, bytes_ok r /\ (length r <= length rest)%nat ->
    bytes_ok (drop n r) /\ (length (drop n r) <= length rest)%nat) as Hdrop.
  { intros n r [? ?]. split; [by apply Forall_drop|rewrite length_drop; lia]. }
  destruct (w =? 0); [|destruct (w =? 1); [|destruct (w =? 5); [|destruct (negb _); [done|]]]].
  - intros ([v r] & [? ?]%getv_shorter' & [= <-])%res_bind_ok; [split; [done|lia]|done].
  - destruct (_ <? _); [done|]. intros [= <-]. by apply Hdrop.
  - destruct (_ <? _); [done|]. intros [= <-]. by apply Hdrop.
  - intros ([v r] & Hg & H)%res_bind_ok. apply getv_shorter' in Hg as [? ?]; [|done].
    destruct (_ >? _); [done|]. injection H as <-. apply Hdrop. split; [done|lia].
Qed.

Lemma decode_field_shorter fs l decs n w rest next out rest' next' out' :
  bytes_ok rest -> decode_field fs l decs n w rest next out = (Ok (rest', next'), out') ->
  bytes_ok rest' /\ (length rest' <= length rest)%nat.
Proof.
  intros Hok. unfold decode_field. destruct (select_field fs l next n) as [i|].
  - destruct (fs !! i) as [f|]; [|done]. destruct (out !! i) as [s|]; [|done].
    destruct (negb _); [done|].
    destruct (decode_slot f _ rest s) as [[r|] s'] eqn:Hd; [|done].
    intros [= <- _ _]. by eapply decode_slot_shorter.
  - destruct (wlc_skip w rest) as [r|] eqn:Hs; [|done]. intros [= <- _ _]. by eapply skip_shorter.
Qed.

(** Fuel beyond the length of the input is not used. *)
Lemma decode_loop_fuel fs l decs fuel1 : forall fuel2 rest next out,
  bytes_ok rest -> (length rest <= fuel1)%nat -> (length rest <= fuel2)%nat ->
  decode_loop fs l decs fuel1 rest next out = decode_loop fs l decs fuel2 rest next out.
Proof.
  induction fuel1 as [|k1 IH]; intros [|k2] [|b rest] next out Hok H1 H2; try done; cbn [length] in *;
    try lia.
  cbn [decode_loop]. destruct (wlc_getv (b :: rest)) as [[key r]|] eqn:Hg; [|done].
  apply getv_shorter' in Hg as [Hrok Hr]; [|done]. cbn [length] in Hr.
  destruct (decode_key key) as [[n w]|]; [|done].
  destruct (decode_field fs l decs n w r next out) as [[[r' next']|] out'] eqn:Hf; [|done].
  apply decode_field_shorter in Hf as [? ?]; [|done]. apply IH; [done|lia|lia].
Qed.
