(* ===== verification/WlcCompat.v ===== *)
(** * Unknown and repeated fields

    The decoder skips the fields its table does not list, wherever they stand,
    so a message of a newer schema still decodes; and it rejects a second
    occurrence of a field. *)

From Stdlib Require Import String.
From S2P Require Import Prelude WlcWire WlcSchema WlcCodec WlcRoundtrip WlcDecoded.

(** The payload of a field of wire type [w]. *)
Inductive payload : Z -> bytes -> Prop :=
| payload_varint v : in_u 64 v -> payload 0 (wlc_putv v)
| payload_fixed64 b : length b = 8%nat -> payload 1 b
| payload_fixed32 b : length b = 4%nat -> payload 5 b
| payload_span b : in_u 64 (Z.of_nat (length b)) -> payload 2 (prefixed b).

(** A run of fields whose numbers are not in the table. *)
Inductive unknown (fs : list wlc_field) : bytes -> Prop :=
| unknown_nil : unknown fs []
| unknown_cons n w b u :
    1 <= n <= 65535 -> find_linear fs n 0 = None -> payload w b -> unknown fs u ->
    unknown fs (wlc_putv (n * 8 + w) ++ b ++ u).

(** The encoding of a struct, with unknown fields before, between and after. *)
Inductive extended (all : list wlc_field) : list wlc_field -> wstruct -> bytes -> Prop :=
| extended_nil u : unknown all u -> extended all [] [] u
| extended_cons f fs s slots u bs :
    unknown all u -> extended all fs slots bs ->
    extended all (f :: fs) (s :: slots) (u ++ enc_slot enc f s ++ bs).

Lemma skip_payload w b rest : payload w b -> wlc_skip w (b ++ rest) = Ok rest.
Proof.
  destruct 1 as [v Hv|b Hb|b Hb|b Hb]; unfold wlc_skip; cbn [Z.eqb Pos.eqb negb].
  - by rewrite getv_putv.
  - rewrite length_app, Hb, drop_app_len by done.
    by rewrite (proj2 (Z.ltb_ge _ _)) by lia.
  - rewrite length_app, Hb, drop_app_len by done.
    by rewrite (proj2 (Z.ltb_ge _ _)) by lia.
  - unfold prefixed. rewrite <- app_assoc, getv_putv by done. cbn [mbind res_bind].
    rewrite Z.gtb_ltb, length_app, (proj2 (Z.ltb_ge _ _)) by lia. by rewrite drop_app_len by lia.
Qed.

Lemma payload_wire w b : payload w b -> w = 0 \/ w = 1 \/ w = 2 \/ w = 5.
Proof. destruct 1; tauto. Qed.

(** The member of [f] is present in the slot [s]. *)
Definition present (f : wlc_field) (s : slot) : Prop :=
  match card f, s with
  | WLC_OPTIONAL, SOpt true _ | WLC_PACKED, SPacked true _ => True
  | _, _ => False
  end.

Lemma canon_fields_lookup fs : forall slots i f s,
  fs !! i = Some f -> slots !! i = Some s ->
  canon_fields canon fs slots !! i = Some (canon_slot canon f s).
Proof.
  induction fs as [|g fs IH]; intros [|x slots] [|i] f s Hf Hs; try done.
  - by injection Hf as ->; injection Hs as ->.
  - by eapply IH.
Qed.

Lemma present_canon f s : present f s -> present f (canon_slot canon f s).
Proof. unfold present, canon_slot. by destruct (card f), s as [[]|[]|]. Qed.

Lemma extended_enc all fs : forall slots,
  valid_fields valid fs slots = true -> extended all fs slots (enc_fields enc fs slots).
Proof.
  induction fs as [|f fs IH]; intros [|s slots] Hv; try done; cbn [enc_fields valid_fields] in *.
  - apply extended_nil. constructor.
  - apply andb_prop in Hv as [_ Hv].
    apply (extended_cons all f fs s slots [] _ (unknown_nil all)). by apply IH.
Qed.

Section compat.
Variables (fs : list wlc_field) (l : wlc_lookup).
Hypothesis Hl : lookup_ok fs l = true.
Hypothesis Hlen : Z.of_nat (length fs) <= 65535.
Let decs := map (fun f => decoder_of (nested f)) fs.

(** Unknown fields leave the struct as it is. *)
Lemma decode_loop_unknown u : unknown fs u -> forall rest fuel next out,
  (length (u ++ rest) <= fuel)%nat ->
  exists fuel', (length rest <= fuel')%nat /\
    decode_loop fs l decs fuel (u ++ rest) next out = decode_loop fs l decs fuel' rest next out.
Proof.
  induction 1 as [|n w b u Hn Hnone Hb Hu IH]; intros rest fuel next out Hf; [by exists fuel|].
  pose proof (payload_wire w b Hb) as Hw.
  destruct (putv_nonempty (n * 8 + w)) as (b0 & lb & Hputv).
  rewrite <- !app_assoc in *. rewrite length_app, Hputv in Hf. cbn [length] in Hf.
  destruct fuel as [|k]; [lia|].
  destruct (IH rest k next out) as (fuel' & Hf' & He); [rewrite !length_app in *; lia|].
  exists fuel'. split; [done|]. rewrite <- He.
  cbn [decode_loop]. rewrite getv_putv by (unfold in_u; lia). rewrite Hputv. cbn [app].
  rewrite decode_key_enc by done. unfold decode_field, select_field.
  rewrite (find_field_linear fs l n Hl Hlen), Hnone by lia. rewrite skip_payload by done.
  destruct (fs !! next) as [g|] eqn:Hg; [|done].
  by rewrite (proj2 (Z.eqb_neq _ _)) by (by eapply find_linear_none).
Qed.

Lemma decode_loop_extended : forall post slots bs, extended fs post slots bs ->
  forall pre cpre next fuel n k rest,
  fs = pre ++ post -> length cpre = length pre ->
  forallb (wf_field wf_desc) post = true -> valid_fields valid post slots = true ->
  measure_fields wlc_measure false post slots n = Ok k -> (length (bs ++ rest) <= fuel)%nat ->
  exists fuel' next', (length rest <= fuel')%nat /\
    decode_loop fs l decs fuel (bs ++ rest) next (cpre ++ clear_fields wlc_clear post []) =
    decode_loop fs l decs fuel' rest next' (cpre ++ canon_fields canon post slots).
Proof.
  induction 1 as [u Hu|f post s slots u bs Hu Hbs IH];
    intros pre cpre next fuel n k rest Hfs Hcp Hwf Hv Hm Hk.
  { destruct (decode_loop_unknown u Hu rest fuel next (cpre ++ []) Hk) as (fuel' & ? & ?).
    by exists fuel', next. }
  cbn [forallb valid_fields measure_fields canon_fields clear_fields head tail] in *.
  apply andb_prop in Hwf as [Hf Hwf]. apply andb_prop in Hv as [Hs Hv].
  apply res_bind_ok in Hm as (n1 & Hm1 & Hm).
  assert (fs !! length pre = Some f) as Hi by (rewrite Hfs; by apply list_lookup_middle).
  rewrite <- !app_assoc in *.
  destruct (decode_loop_unknown u Hu (enc_slot enc f s ++ bs ++ rest) fuel next
    (cpre ++ clear_slot wlc_clear f None :: clear_fields wlc_clear post []) Hk) as (fuel1 & Hf1 & ->).
  rewrite (cons_middle (canon_slot canon f s) cpre), (app_assoc cpre [_]).
  assert (length (cpre ++ [canon_slot canon f s]) = length (pre ++ [f])) as Hcp'
    by (rewrite !length_app; simpl; lia).
  destruct (slot_has s) eqn:Hh.
  - assert (nested_all decodes (nested f)) as Hnf
      by (destruct (nested f); [apply decode_enc|done]).
    destruct (decode_slot_enc f s (bs ++ rest) n n1 (wf_field_shape _ _ Hf) Hs Hh Hnf Hm1)
      as (lv & He & Hd).
    rewrite He in *. rewrite <- (app_assoc (wlc_putv _)) in Hf1 |- *.
    destruct (putv_nonempty (number f * 8 + wire f)) as (b & lb & Hb).
    rewrite !length_app, Hb in Hf1. cbn [length] in Hf1. destruct fuel1 as [|fuel1]; [lia|].
    unfold decs.
    erewrite (decode_loop_step fs l Hl Hlen); [|exact Hi|by apply wf_field_shape| |exact Hd];
      [|by apply list_lookup_middle].
    rewrite insert_app_r_alt, Hcp, Nat.sub_diag by lia. cbn [insert list_insert].
    rewrite (cons_middle _ cpre), (app_assoc cpre [_]).
    eapply (IH (pre ++ [f])); [by rewrite <- app_assoc|exact Hcp'|done..|rewrite length_app; lia].
  - assert (enc_slot enc f s = [] /\ canon_slot canon f s = clear_slot wlc_clear f None) as [He Hc].
    { unfold valid_slot in Hs. by destruct (card f), s as [[] ?|[] ?|]. }
    rewrite He, Hc in *. cbn [app] in *. rewrite (cons_middle _ cpre), (app_assoc cpre [_]).
    eapply (IH (pre ++ [f])); [by rewrite <- app_assoc|exact Hcp'|done..].
Qed.

(** A second occurrence of a field that is present ends the loop. *)
Lemma decode_loop_duplicate out i f s fuel next rest :
  fs !! i = Some f -> field_shape wf_desc f -> out !! i = Some s ->
  present f s ->
  decode_loop fs l decs (S fuel) (wlc_putv (number f * 8 + wire f) ++ rest) next out =
    (WL_CODEC_ERR_DUPLICATE_FIELD, out).
Proof.
  intros Hi Hsh Ho Hp. pose proof (field_number fs l Hl i f Hi) as Hnum.
  pose proof (wire_cases f Hsh) as Hw.
  destruct (putv_nonempty (number f * 8 + wire f)) as (b & lb & Hb).
  cbn [decode_loop]. rewrite getv_putv by (unfold in_u; lia).
  rewrite Hb. cbn [app]. rewrite decode_key_enc by done. unfold decode_field.
  rewrite (select_field_complete fs l Hl Hlen next i f Hi), Hi, Ho, Z.eqb_refl. cbn [negb].
  unfold decode_slot, present in *.
  destruct (card f), s as [[]|[]|]; try done; by rewrite list_insert_id.
Qed.
End compat.

(** ** Messages *)

Lemma decode_extended d slots n bs old :
  wf_desc d = true -> valid d slots = true -> wlc_measure d slots = Ok n ->
  extended (fields d) (fields d) slots bs -> wlc_decode d bs old = (WL_CODEC_OK, canon d slots).
Proof.
  destruct d as [fs l]. intros Hwf Hv Hm Hext. cbn [fields] in Hext.
  cbn [wlc_decode]. unfold decode_body. rewrite clear_old by done.
  apply wf_desc_inv in Hwf as (Hl & Hlen & Hwfs).
  cbn [valid canon wlc_clear] in *. unfold wlc_measure in Hm. cbn [wlc_measure_impl] in Hm.
  match goal with |- context [decode_loop fs l ?decs _ _ _ _] =>
    change decs with (map (fun f => decoder_of (nested f)) fs) end.
  destruct (decode_loop_extended fs l Hl Hlen fs slots bs Hext [] [] 0 (length bs) 0 n [])
    as (fuel' & next' & _ & Hloop); [done..|by rewrite app_nil_r|].
  rewrite app_nil_r in Hloop. cbn [app] in Hloop. rewrite Hloop.
  destruct fuel'; cbn [decode_loop]; by erewrite not_missing.
Qed.

Lemma decode_duplicate d slots n i f s rest old :
  wf_desc d = true -> valid d slots = true -> wlc_measure d slots = Ok n ->
  fields d !! i = Some f -> slots !! i = Some s -> present f s ->
  fst (wlc_decode d (enc d slots ++ wlc_putv (number f * 8 + wire f) ++ rest) old) =
    WL_CODEC_ERR_DUPLICATE_FIELD.
Proof.
  destruct d as [fs l]. intros Hwf Hv Hm Hi Hs Hp. cbn [fields] in Hi.
  cbn [wlc_decode]. unfold decode_body. rewrite clear_old by done.
  apply wf_desc_inv in Hwf as (Hl & Hlen & Hwfs).
  cbn [valid wlc_clear enc] in *. unfold wlc_measure in Hm. cbn [wlc_measure_impl] in Hm.
  match goal with |- context [decode_loop fs l ?decs _ _ _ _] =>
    change decs with (map (fun f => decoder_of (nested f)) fs) end.
  set (more := wlc_putv _ ++ rest).
  destruct (decode_loop_extended fs l Hl Hlen fs slots _ (extended_enc fs fs slots Hv) [] [] 0
    (length (enc_fields enc fs slots ++ more)) 0 n more) as (fuel' & next' & Hf & Hloop); [done..|].
  cbn [app] in Hloop. rewrite Hloop. clear Hloop.
  destruct (putv_nonempty (number f * 8 + wire f)) as (b & lb & Hb).
  unfold more in Hf. rewrite Hb in Hf. cbn [length app] in Hf. destruct fuel' as [|fuel']; [lia|].
  unfold more. rewrite (decode_loop_duplicate fs l Hl Hlen _ i f (canon_slot canon f s)); [done|done| | |].
  - apply wf_field_shape. rewrite forallb_forall in Hwfs. apply Hwfs, list_elem_of_In.
    by eapply list_elem_of_lookup_2.
  - by apply canon_fields_lookup.
  - by apply present_canon.
Qed.
