(* ===== verification/WlcValue.v ===== *)
(** * Owned values

    The value layer of [generated/wirelink/codec/fci_device.c], lines
    2387-8603.  For every message the generator writes the same nine functions,
    expanded over the fields of its table; they are modelled once, over the
    table, and instantiated per message in [FciApi.v].

    An owned value has the slots of its message, with inline arrays instead of
    pointers: [VSpan (Some data) length] is a [length] and a [data] array of
    the field's maximal length.  A view is a struct of the codec. *)

From Stdlib Require Import String.
From S2P Require Import Prelude WlcWire WlcSchema WlcCodec WlcHash WlcRoundtrip WlcDecoded.

(** ** Definitions *)

Definition is_span (k : wlc_kind) : bool :=
  match k with WLC_BYTES | WLC_STRING => true | _ => false end.

(** [memset(out, 0, sizeof *out)]. *)
Section zero.
Variable zero_nested : wlc_desc -> wstruct.

Definition zero_slot (f : wlc_field) : slot :=
  match card f with
  | WLC_PACKED => SPacked false (repeat 0 (Z.to_nat (packed_count f)))
  | WLC_REPEATED => SRep None 0 0
  | WLC_OPTIONAL =>
      SOpt false
        match kind f, nested f with
        | WLC_MESSAGE, Some d => VMsg (zero_nested d)
        | WLC_MESSAGE, None => VMsg []
        | WLC_BYTES, _ | WLC_STRING, _ => VSpan (Some (repeat 0 (Z.to_nat (max_length f)))) 0
        | _, _ => VInt 0
        end
  end.
End zero.

Fixpoint value_zero (d : wlc_desc) : wstruct :=
  match d with Desc fs _ => map (zero_slot value_zero) fs end.

(** [*_value_defaults]: scalars and the members of nested values. *)
Section defaults.
Variable defaults_nested : wlc_desc -> wstruct -> wstruct.

Definition defaults_value (f : wlc_field) (v : wval) : wval :=
  match kind f, nested f, v with
  | WLC_MESSAGE, Some d, VMsg vs => VMsg (defaults_nested d vs)
  | (WLC_MESSAGE | WLC_BYTES | WLC_STRING), _, _ => v
  | _, _, _ => scalar_default f
  end.

Definition defaults_slot (f : wlc_field) (s : slot) : slot :=
  match s with
  | SOpt h v => SOpt h (defaults_value f v)
  | _ => s
  end.
End defaults.

Fixpoint value_defaults (d : wlc_desc) (out : wstruct) : wstruct :=
  match d with Desc fs _ => zip_with (defaults_slot value_defaults) fs out end.

(** [*_value_copy_fields]: the members of the view, defaults where absent.
    [memcpy] writes the first [length] bytes of the array. *)
Section copy.
Variable copy_nested : wlc_desc -> wstruct -> wstruct -> wstruct.

Definition copy_value (f : wlc_field) (v out : wval) : wval :=
  match kind f, nested f, v, out with
  | WLC_MESSAGE, Some d, VMsg vs, VMsg os => VMsg (copy_nested d vs os)
  | (WLC_BYTES | WLC_STRING), _, VSpan data len, VSpan buf _ =>
      VSpan (Some (take (Z.to_nat len) (default [] data) ++ drop (Z.to_nat len) (default [] buf))) len
  | _, _, _, _ => v
  end.

Definition copy_slot (f : wlc_field) (s out : slot) : slot :=
  match s, out with
  | SOpt h v, SOpt _ o => SOpt h (if h then copy_value f v o else defaults_value value_defaults f o)
  | SPacked h elems, SPacked _ o => SPacked h (if h then elems else o)
  | _, _ => out
  end.

Fixpoint copy_fields (fs : list wlc_field) (view out : wstruct) : wstruct :=
  match fs, view, out with
  | f :: fs', s :: view', o :: out' => copy_slot f s o :: copy_fields fs' view' out'
  | _, _, _ => out
  end.
End copy.

Fixpoint value_copy_fields (d : wlc_desc) (view out : wstruct) : wstruct :=
  match d with Desc fs _ => copy_fields value_copy_fields fs view out end.

(** [*_wlc_detail_value_copy]. *)
Definition value_copy (d : wlc_desc) (view : wstruct) : wstruct :=
  value_copy_fields d view (value_zero d).

Definition value_clear (d : wlc_desc) : wstruct := value_defaults d (value_zero d).

Definition value_from_view (d : wlc_desc) (view : wstruct) : codec wstruct :=
  _ ← wlc_measure d view; Ok (value_copy d view).

(** [*_value_borrow]: a view whose spans point into the value.  The view is
    cleared first; a failure leaves it partly filled. *)
Section borrow.
Variable borrow_nested : wlc_desc -> wstruct -> wstruct -> codec wstruct.

Definition borrow_value (f : wlc_field) (v out : wval) : codec wval :=
  match kind f, nested f, v, out with
  | WLC_MESSAGE, Some d, VMsg vs, VMsg os => vs ← borrow_nested d vs os; Ok (VMsg vs)
  | (WLC_BYTES | WLC_STRING), _, VSpan buf len, _ =>
      if len >? max_length f then Err WL_CODEC_ERR_INVALID_VALUE
      else Ok (VSpan (Some (take (Z.to_nat len) (default [] buf))) len)
  | _, _, _, _ => Ok v
  end.

Definition borrow_slot (f : wlc_field) (s out : slot) : codec slot :=
  match s, out with
  | SOpt h v, SOpt _ o => if h then v ← borrow_value f v o; Ok (SOpt h v) else Ok (SOpt h o)
  | SPacked h elems, SPacked _ o => Ok (SPacked h (if h then elems else o))
  | _, _ => Ok out
  end.

Fixpoint borrow_fields (fs : list wlc_field) (v out : wstruct) : codec wstruct :=
  match fs, v, out with
  | f :: fs', s :: v', o :: out' =>
      o ← borrow_slot f s o; out' ← borrow_fields fs' v' out'; Ok (o :: out')
  | _, _, _ => Ok out
  end.
End borrow.

Fixpoint value_borrow (d : wlc_desc) (v out : wstruct) : codec wstruct :=
  match d with Desc fs _ => borrow_fields value_borrow fs v (clear_fields wlc_clear fs out) end.

Definition value_to_view (d : wlc_desc) (v : wstruct) : codec wstruct :=
  view ← value_borrow d v []; _ ← wlc_measure d view; Ok view.

Definition value_encoded_size (d : wlc_desc) (v : wstruct) : Z :=
  match value_borrow d v [] with
  | Err _ => SIZE_MAX
  | Ok view => match wlc_measure d view with Ok n => n | Err _ => SIZE_MAX end
  end.

Definition value_encode (d : wlc_desc) (v : wstruct) (cap : Z) : codec Z * bytes :=
  match value_borrow d v [] with
  | Err s => (Err s, [])
  | Ok view => wlc_encode d view cap
  end.

(** [*out] is written on success only. *)
Definition value_decode (d : wlc_desc) (input : bytes) : codec wstruct :=
  match wlc_decode d input [] with
  | (WL_CODEC_OK, view) => Ok (value_copy d view)
  | (s, _) => Err s
  end.

(** ** Normal values

    What a program holds after [*_value_clear] and assignments to members it
    marks as present: absent members have their defaults, and the part of an
    array beyond its length is zero. *)

Section normal.
Variable normal_nested : wlc_desc -> wstruct -> Prop.

Definition normal_value (f : wlc_field) (v : wval) : Prop :=
  match kind f, v with
  | (WLC_BYTES | WLC_STRING), VSpan (Some data) len =>
      0 <= len <= max_length f /\ bytes_ok data /\
      data = take (Z.to_nat len) data ++ repeat 0 (Z.to_nat (max_length f) - Z.to_nat len)%nat /\
      Z.of_nat (length data) = max_length f
  | (WLC_BYTES | WLC_STRING), _ => False
  | WLC_MESSAGE, VMsg vs =>
      match nested f with Some d => normal_nested d vs | None => False end
  | _, _ => valid_value valid f v = true
  end.

Definition normal_slot (f : wlc_field) (s : slot) : Prop :=
  match card f, s with
  | WLC_OPTIONAL, SOpt true v => normal_value f v
  | WLC_PACKED, SPacked true _ => valid_slot valid f s = true
  | _, _ => s = defaults_slot value_defaults f (zero_slot value_zero f)
  end.
End normal.

Fixpoint value_normal (d : wlc_desc) (v : wstruct) : Prop :=
  match d with
  | Desc fs _ =>
      (fix go fs v := match fs, v with
       | [], [] => True
       | f :: fs', s :: v' => normal_slot value_normal f s /\ go fs' v'
       | _, _ => False
       end) fs v
  end.

(** Every span of a value has an inline array. *)
Section bounded.
Variable bounded_nested : wlc_desc -> bool.
Definition bounded_field (f : wlc_field) : bool :=
  match kind f, nested f with
  | (WLC_BYTES | WLC_STRING), _ => between 1 65536 (max_length f)
  | WLC_MESSAGE, Some d => bounded_nested d
  | _, _ => true
  end.
End bounded.
Fixpoint bounded (d : wlc_desc) : bool :=
  match d with Desc fs _ => forallb (bounded_field bounded) fs end.

Lemma value_normal_cons f fs l s v :
  value_normal (Desc (f :: fs) l) (s :: v) =
  (normal_slot value_normal f s /\ value_normal (Desc fs l) v).
Proof. done. Qed.

(** ** Borrowing a normal value and copying it back *)

Definition borrows (d : wlc_desc) : Prop :=
  wf_desc d = true -> bounded d = true -> forall v old, value_normal d v ->
  exists w, value_borrow d v old = Ok w /\ valid d w = true /\ canon d w = w /\
    value_copy_fields d w (value_zero d) = v.

Lemma in_u_small w z : 0 <= z < 65536 -> 16 <= w -> in_u w z.
Proof.
  intros Hz Hw. unfold in_u. pose proof (Z.pow_le_mono_r 2 16 w ltac:(lia) Hw). lia.
Qed.

Lemma drop_repeat {A} (x : A) n k : drop k (repeat x n) = repeat x (n - k)%nat.
Proof. revert k. induction n as [|n IH]; intros [|k]; cbn; first [done|apply IH]. Qed.

Lemma borrow_value_normal f v :
  nested_wf f -> (kind f = WLC_MESSAGE -> nested_all (fun d => bounded d = true) (nested f)) ->
  (is_span (kind f) = true -> 1 <= max_length f < 65536) ->
  nested_all borrows (nested f) -> normal_value value_normal f v -> forall o z,
  match kind f with WLC_MESSAGE => exists os, o = VMsg os | _ => True end ->
  z = match kind f, nested f with
      | WLC_MESSAGE, Some d => VMsg (value_zero d)
      | WLC_MESSAGE, None => VMsg []
      | WLC_BYTES, _ | WLC_STRING, _ => VSpan (Some (repeat 0 (Z.to_nat (max_length f)))) 0
      | _, _ => VInt 0
      end ->
  exists x, borrow_value value_borrow f v o = Ok x /\ valid_value valid f x = true /\
    canon_value canon f x = x /\ copy_value value_copy_fields f x z = v.
Proof.
  intros Hwf Hbd Hmax Hn Hv o z Ho ->.
  unfold normal_value, borrow_value, nested_wf, valid_value, copy_value in *.
  assert (forall data len, 1 <= max_length f < 65536 -> 0 <= len <= max_length f ->
    bytes_ok data -> data = take (Z.to_nat len) data ++ repeat 0 (Z.to_nat (max_length f) - Z.to_nat len)%nat ->
    Z.of_nat (length data) = max_length f ->
    (len >? max_length f) = false /\
    between_u 64 len && bytes_okb (take (Z.to_nat len) data) &&
      (Z.of_nat (length (take (Z.to_nat len) data)) =? len) = true /\
    take (Z.to_nat len) (take (Z.to_nat len) data) ++
      drop (Z.to_nat len) (repeat 0 (Z.to_nat (max_length f))) = data) as Hspan.
  { intros data len Hm Hlen Hok Hdata Hl. split_and!.
    - rewrite Z.gtb_ltb. apply Z.ltb_ge. lia.
    - rewrite !andb_true_iff, between_u_spec, bytes_okb_spec, Z.eqb_eq.
      split_and!; [apply in_u_small; lia|by apply Forall_take|rewrite length_take; lia].
    - rewrite take_take, Nat.min_id, drop_repeat. done. }
  destruct (kind f) eqn:Hk; destruct v as [n|[data|] len|vs]; try done;
    try (by exists (VInt n); destruct (nested f)).
  1,2: destruct Hv as (Hlen & Hok & Hdata & Hl);
    destruct (Hspan data len (Hmax eq_refl) Hlen Hok Hdata Hl) as (Hg & Hval & Hcopy);
    exists (VSpan (Some (take (Z.to_nat len) data)) len); rewrite Hg;
    cbn [default from_option id canon_value]; rewrite Hcopy;
    split_and!; [by destruct (nested f)|exact Hval|done|by destruct (nested f)].
  destruct (nested f) as [d|] eqn:Hd; [|done]. destruct Ho as (os & ->).
  destruct (Hn (Hwf eq_refl) (Hbd eq_refl) vs os Hv) as (w & Hb & Hval & Hc & Hcp).
  exists (VMsg w). rewrite Hb. cbn [mbind res_bind canon_value]. rewrite Hd, Hc, Hcp. done.
Qed.

Lemma borrow_slot_normal f s :
  wf_field wf_desc f = true -> bounded_field bounded f = true ->
  nested_all borrows (nested f) -> normal_slot value_normal f s ->
  exists x, borrow_slot value_borrow f s (clear_slot wlc_clear f None) = Ok x /\
    valid_slot valid f x = true /\ canon_slot canon f x = x /\
    copy_slot value_copy_fields f x (zero_slot value_zero f) = s.
Proof.
  intros Hwf Hbd Hn Hs. pose proof (wf_field_facts _ _ Hwf) as Hff.
  pose proof (wf_field_shape _ _ Hwf) as Hsh. pose proof (shape_nested_wf f Hsh) as Hnw.
  assert (valid_slot valid f (clear_slot wlc_clear f None) = true) as Hclear.
  { apply clear_slot_good; [done..|]. destruct (nested f); [apply clear_valid|done]. }
  unfold normal_slot in Hs. destruct Hsh as [Hc Hw Hk|Hc Hw Hp Hk]; rewrite Hc in Hs.
  - destruct s as [[] v|h e|st n c]; try (unfold zero_slot in Hs; rewrite Hc in Hs; done).
    + assert (exists o, clear_slot wlc_clear f None = SOpt false o /\
        match kind f with WLC_MESSAGE => exists os, o = VMsg os | _ => True end) as (o & Ho & Hom).
      { unfold clear_slot. rewrite Hc. eexists. split; [reflexivity|].
        destruct (kind f) eqn:E, (nested f); try done. by eexists. }
      edestruct (borrow_value_normal f v) as (x & Hx & Hv & Hcn & Hcp); [exact Hnw| | |exact Hn|exact Hs|exact Hom|reflexivity|].
      { intros E. unfold bounded_field in Hbd. rewrite E in Hbd, Hk. by destruct (nested f). }
      { intros E. apply between_spec. unfold bounded_field in Hbd.
        by destruct (kind f), (nested f). }
      exists (SOpt true x). rewrite Ho. cbn [borrow_slot]. rewrite Hx. cbn [mbind res_bind].
      unfold valid_slot, canon_slot, zero_slot. rewrite Hc, Hcn. cbn [copy_slot]. by rewrite Hcp.
    + exists (clear_slot wlc_clear f None).
      split; [|split; [done|split]].
      * unfold clear_slot. by rewrite Hc.
      * unfold canon_slot, clear_slot. by rewrite Hc.
      * rewrite Hs. unfold clear_slot, zero_slot. by rewrite Hc.
  - destruct s as [h v|[] e|st n c]; try (unfold zero_slot in Hs; rewrite Hc in Hs; done).
    + exists (SPacked true e). unfold clear_slot, zero_slot. rewrite Hc.
      split; [done|]. split; [done|]. done.
    + exists (clear_slot wlc_clear f None).
      split; [|split; [done|split]].
      * unfold clear_slot. by rewrite Hc.
      * unfold canon_slot, clear_slot. by rewrite Hc.
      * rewrite Hs. unfold clear_slot, zero_slot. by rewrite Hc.
Qed.

Lemma borrow_normal d : borrows d.
Proof.
  induction d as [fs l IH] using wlc_desc_nested_ind. intros Hwf Hbd v old Hv.
  pose proof (clear_old _ Hwf old) as Hold. cbn [wlc_clear] in Hold.
  apply wf_desc_inv in Hwf as (_ & _ & Hwf).
  cbn [value_borrow valid canon value_copy_fields value_zero bounded] in *. rewrite Hold. clear Hold.
  revert v Hv. induction IH as [|f fs Hf _ IHfs]; intros [|s v] Hv; try done.
  - by exists [].
  - cbn [forallb clear_fields head tail map borrow_fields] in *.
    apply andb_prop in Hwf as [Hwf Hwfs]. apply andb_prop in Hbd as [Hbd Hbds].
    rewrite value_normal_cons in Hv. destruct Hv as [Hs Hv].
    destruct (borrow_slot_normal f s Hwf Hbd Hf Hs) as (x & -> & Hx & Hc & Hcp).
    destruct (IHfs Hwfs Hbds v Hv) as (w & Hb & Hval & Hcn & Hcpw).
    exists (x :: w). cbn [mbind res_bind]. rewrite Hb. cbn [mbind res_bind valid_fields canon_fields copy_fields].
    by rewrite Hx, Hval, Hc, Hcn, Hcp, Hcpw.
Qed.
