(* ===== verification/FciMessages.v ===== *)
(** * The message tables of the device protocol

    [generated/wirelink/codec/fci_device.c], lines 816-1246: the descriptor of
    every message, field by field.  The [element] column is the size of the C
    type on the 64-bit hosts ([sizeof] of a nested struct is not used by the
    codec for members that are not repeated and is written 0). *)

From Stdlib Require Import String.
From S2P Require Import Prelude WlcWire WlcSchema WlcRoundtrip.

#[local] Open Scope string_scope.
#[local] Open Scope list_scope.
#[local] Open Scope Z_scope.

Definition semantic_version_desc : wlc_desc := Desc [
  Field 1 WLC_OPTIONAL WLC_U32 1 0 1 "major" "has_major" 4 0 0 [8; 0; 0] 0 0 None None;
  Field 2 WLC_OPTIONAL WLC_U32 1 0 1 "minor" "has_minor" 4 0 0 [16; 0; 0] 0 0 None None;
  Field 3 WLC_OPTIONAL WLC_U32 1 0 1 "patch" "has_patch" 4 0 0 [24; 0; 0] 0 0 None None] WLC_LOOKUP_LINEAR.

Definition device_info_desc : wlc_desc := Desc [
  Field 1 WLC_OPTIONAL WLC_MESSAGE 1 2 1 "protocol_version" "has_protocol_version" 0 0 0 [10; 0; 0] 0 0 None (Some semantic_version_desc);
  Field 2 WLC_OPTIONAL WLC_MESSAGE 1 2 1 "firmware_version" "has_firmware_version" 0 0 0 [18; 0; 0] 0 0 None (Some semantic_version_desc);
  Field 3 WLC_OPTIONAL WLC_STRING 1 2 1 "board_name" "has_board_name" 16 0 31 [26; 0; 0] 0 0 None None;
  Field 4 WLC_OPTIONAL WLC_STRING 1 2 1 "custom_name" "has_custom_name" 16 0 31 [34; 0; 0] 0 0 None None;
  Field 5 WLC_OPTIONAL WLC_ENUM 1 0 1 "firmware_type" "has_firmware_type" 4 0 0 [40; 0; 0] 0 0 None None;
  Field 6 WLC_OPTIONAL WLC_STRING 1 2 1 "serial" "has_serial" 16 0 31 [50; 0; 0] 0 0 None None;
  Field 7 WLC_OPTIONAL WLC_F64 0 1 1 "command_capabilities" "has_command_capabilities" 8 0 0 [57; 0; 0] 0 0 None None] WLC_LOOKUP_LINEAR.

Definition device_settings_desc : wlc_desc := Desc [
  Field 1 WLC_OPTIONAL WLC_F32 1 5 1 "firmware_dt_us" "has_firmware_dt_us" 4 0 0 [13; 0; 0] 0 0 None None;
  Field 2 WLC_PACKED WLC_FLOAT32 1 2 1 "gravity_scale" "has_gravity_scale" 4 6 0 [18; 0; 0] 0 0 None None;
  Field 3 WLC_PACKED WLC_FLOAT32 1 2 1 "torque_continuous" "has_torque_continuous" 4 7 0 [26; 0; 0] 0 0 None None;
  Field 4 WLC_PACKED WLC_FLOAT32 1 2 1 "torque_peak" "has_torque_peak" 4 7 0 [34; 0; 0] 0 0 None None;
  Field 5 WLC_PACKED WLC_FLOAT32 1 2 1 "thermal_capacity" "has_thermal_capacity" 4 7 0 [42; 0; 0] 0 0 None None;
  Field 6 WLC_PACKED WLC_FLOAT32 1 2 1 "torque_ramp_rate" "has_torque_ramp_rate" 4 7 0 [50; 0; 0] 0 0 None None;
  Field 7 WLC_PACKED WLC_FLOAT32 1 2 1 "joint_limit_min" "has_joint_limit_min" 4 6 0 [58; 0; 0] 0 0 None None;
  Field 8 WLC_PACKED WLC_FLOAT32 1 2 1 "joint_limit_max" "has_joint_limit_max" 4 6 0 [66; 0; 0] 0 0 None None] WLC_LOOKUP_LINEAR.

Definition arm_status_desc : wlc_desc := Desc [
  Field 1 WLC_OPTIONAL WLC_ENUM 1 0 1 "mode" "has_mode" 4 0 0 [8; 0; 0] 0 0 None None;
  Field 2 WLC_OPTIONAL WLC_F32 1 5 1 "sequence" "has_sequence" 4 0 0 [21; 0; 0] 0 0 None None;
  Field 3 WLC_OPTIONAL WLC_F64 1 1 1 "timestamp_us" "has_timestamp_us" 8 0 0 [25; 0; 0] 0 0 None None;
  Field 4 WLC_PACKED WLC_FLOAT32 1 2 1 "joint_position" "has_joint_position" 4 6 0 [34; 0; 0] 0 0 None None;
  Field 5 WLC_PACKED WLC_FLOAT32 1 2 1 "joint_velocity" "has_joint_velocity" 4 6 0 [42; 0; 0] 0 0 None None;
  Field 6 WLC_PACKED WLC_FLOAT32 1 2 1 "joint_torque" "has_joint_torque" 4 6 0 [50; 0; 0] 0 0 None None;
  Field 7 WLC_PACKED WLC_FLOAT32 1 2 1 "base_gravity" "has_base_gravity" 4 3 0 [58; 0; 0] 0 0 None None;
  Field 8 WLC_OPTIONAL WLC_FLOAT32 1 5 1 "gripper_position" "has_gripper_position" 4 0 0 [69; 0; 0] 0 0 None None;
  Field 9 WLC_OPTIONAL WLC_FLOAT32 1 5 1 "gripper_velocity" "has_gripper_velocity" 4 0 0 [77; 0; 0] 0 0 None None;
  Field 10 WLC_OPTIONAL WLC_FLOAT32 1 5 1 "gripper_torque" "has_gripper_torque" 4 0 0 [85; 0; 0] 0 0 None None;
  Field 11 WLC_PACKED WLC_FLOAT32 1 2 1 "end_effector_transform" "has_end_effector_transform" 4 16 0 [90; 0; 0] 0 0 None None;
  Field 12 WLC_PACKED WLC_FLOAT32 1 2 1 "external_wrench" "has_external_wrench" 4 6 0 [98; 0; 0] 0 0 None None;
  Field 13 WLC_OPTIONAL WLC_F32 1 5 1 "error_flags" "has_error_flags" 4 0 0 [109; 0; 0] 0 0 None None;
  Field 14 WLC_OPTIONAL WLC_F64 1 1 1 "last_sdk_timestamp_us" "has_last_sdk_timestamp_us" 8 0 0 [113; 0; 0] 0 0 None None] WLC_LOOKUP_DENSE.

Definition motor_feedback_desc : wlc_desc := Desc [
  Field 1 WLC_PACKED WLC_FLOAT32 1 2 1 "position_rad" "has_position_rad" 4 7 0 [10; 0; 0] 0 0 None None;
  Field 2 WLC_PACKED WLC_FLOAT32 1 2 1 "velocity_rad_s" "has_velocity_rad_s" 4 7 0 [18; 0; 0] 0 0 None None;
  Field 3 WLC_PACKED WLC_FLOAT32 1 2 1 "torque_nm" "has_torque_nm" 4 7 0 [26; 0; 0] 0 0 None None;
  Field 4 WLC_PACKED WLC_FLOAT32 1 2 1 "temperature_c" "has_temperature_c" 4 7 0 [34; 0; 0] 0 0 None None;
  Field 5 WLC_OPTIONAL WLC_F32 1 5 1 "device_status_bits" "has_device_status_bits" 4 0 0 [45; 0; 0] 0 0 None None;
  Field 6 WLC_OPTIONAL WLC_U8 1 0 1 "enabled_mask" "has_enabled_mask" 1 0 0 [48; 0; 0] 0 0 None None] WLC_LOOKUP_LINEAR.

Definition arm_diagnostics_desc : wlc_desc := Desc [
  Field 1 WLC_OPTIONAL WLC_F32 1 5 1 "uptime_s" "has_uptime_s" 4 0 0 [13; 0; 0] 0 0 None None;
  Field 2 WLC_OPTIONAL WLC_F32 1 5 1 "tick_count" "has_tick_count" 4 0 0 [21; 0; 0] 0 0 None None;
  Field 3 WLC_OPTIONAL WLC_F32 1 5 1 "mode_entry_ms" "has_mode_entry_ms" 4 0 0 [29; 0; 0] 0 0 None None;
  Field 4 WLC_OPTIONAL WLC_BOOL 1 0 1 "bus_healthy" "has_bus_healthy" 1 0 0 [32; 0; 0] 0 0 None None;
  Field 5 WLC_OPTIONAL WLC_U8 1 0 1 "bus_state" "has_bus_state" 1 0 0 [40; 0; 0] 0 0 None None;
  Field 6 WLC_OPTIONAL WLC_U16 1 0 1 "tx_error_count" "has_tx_error_count" 2 0 0 [48; 0; 0] 0 0 None None;
  Field 7 WLC_OPTIONAL WLC_U16 1 0 1 "rx_error_count" "has_rx_error_count" 2 0 0 [56; 0; 0] 0 0 None None;
  Field 8 WLC_OPTIONAL WLC_U8 1 0 1 "joint_healthy_mask" "has_joint_healthy_mask" 1 0 0 [64; 0; 0] 0 0 None None;
  Field 9 WLC_PACKED WLC_FLOAT32 1 2 1 "joint_temperature_c" "has_joint_temperature_c" 4 6 0 [74; 0; 0] 0 0 None None;
  Field 10 WLC_OPTIONAL WLC_BOOL 1 0 1 "gripper_healthy" "has_gripper_healthy" 1 0 0 [80; 0; 0] 0 0 None None;
  Field 11 WLC_OPTIONAL WLC_FLOAT32 1 5 1 "gripper_temperature_c" "has_gripper_temperature_c" 4 0 0 [93; 0; 0] 0 0 None None;
  Field 12 WLC_OPTIONAL WLC_U8 1 0 1 "overheat_mask" "has_overheat_mask" 1 0 0 [96; 0; 0] 0 0 None None] WLC_LOOKUP_DENSE.

Definition set_zero_request_desc : wlc_desc := Desc [
  Field 2 WLC_OPTIONAL WLC_U8 1 0 1 "joint_id" "has_joint_id" 1 0 0 [16; 0; 0] 0 0 None None] WLC_LOOKUP_LINEAR.

Definition set_zero_response_desc : wlc_desc := Desc [] WLC_LOOKUP_LINEAR.

Definition clear_error_request_desc : wlc_desc := Desc [
  Field 2 WLC_OPTIONAL WLC_U8 1 0 1 "joint_id" "has_joint_id" 1 0 0 [16; 0; 0] 0 0 None None] WLC_LOOKUP_LINEAR.

Definition clear_error_response_desc : wlc_desc := Desc [] WLC_LOOKUP_LINEAR.

Definition home_request_desc : wlc_desc := Desc [] WLC_LOOKUP_LINEAR.

Definition home_response_desc : wlc_desc := Desc [] WLC_LOOKUP_LINEAR.

Definition clear_faults_request_desc : wlc_desc := Desc [] WLC_LOOKUP_LINEAR.

Definition clear_faults_response_desc : wlc_desc := Desc [] WLC_LOOKUP_LINEAR.

Definition acquire_control_lease_request_desc : wlc_desc := Desc [
  Field 2 WLC_OPTIONAL WLC_F32 1 5 1 "requested_timeout_ms" "has_requested_timeout_ms" 4 0 0 [21; 0; 0] 0 0 None None;
  Field 3 WLC_OPTIONAL WLC_F64 0 1 1 "current_token" "has_current_token" 8 0 0 [25; 0; 0] 0 0 None None] WLC_LOOKUP_LINEAR.

Definition acquire_control_lease_response_desc : wlc_desc := Desc [
  Field 3 WLC_OPTIONAL WLC_F64 0 1 1 "lease_token" "has_lease_token" 8 0 0 [25; 0; 0] 0 0 None None;
  Field 4 WLC_OPTIONAL WLC_F32 0 5 1 "granted_timeout_ms" "has_granted_timeout_ms" 4 0 0 [37; 0; 0] 0 0 None None] WLC_LOOKUP_LINEAR.

Definition release_control_lease_request_desc : wlc_desc := Desc [
  Field 2 WLC_OPTIONAL WLC_F64 1 1 1 "lease_token" "has_lease_token" 8 0 0 [17; 0; 0] 0 0 None None] WLC_LOOKUP_LINEAR.

Definition release_control_lease_response_desc : wlc_desc := Desc [] WLC_LOOKUP_LINEAR.

Definition get_motor_feedback_request_desc : wlc_desc := Desc [] WLC_LOOKUP_LINEAR.

Definition get_motor_feedback_response_desc : wlc_desc := Desc [
  Field 3 WLC_OPTIONAL WLC_MESSAGE 0 2 1 "feedback" "has_feedback" 0 0 0 [26; 0; 0] 0 0 None (Some motor_feedback_desc)] WLC_LOOKUP_LINEAR.

Definition get_device_info_request_desc : wlc_desc := Desc [] WLC_LOOKUP_LINEAR.

Definition get_device_info_response_desc : wlc_desc := Desc [
  Field 3 WLC_OPTIONAL WLC_MESSAGE 0 2 1 "info" "has_info" 0 0 0 [26; 0; 0] 0 0 None (Some device_info_desc)] WLC_LOOKUP_LINEAR.

Definition set_device_info_request_desc : wlc_desc := Desc [
  Field 2 WLC_OPTIONAL WLC_STRING 1 2 1 "custom_name" "has_custom_name" 16 0 31 [18; 0; 0] 0 0 None None] WLC_LOOKUP_LINEAR.

Definition set_device_info_response_desc : wlc_desc := Desc [] WLC_LOOKUP_LINEAR.

Definition set_arm_control_mode_request_desc : wlc_desc := Desc [
  Field 2 WLC_OPTIONAL WLC_ENUM 1 0 1 "mode" "has_mode" 4 0 0 [16; 0; 0] 0 0 None None] WLC_LOOKUP_LINEAR.

Definition set_arm_control_mode_response_desc : wlc_desc := Desc [] WLC_LOOKUP_LINEAR.

Definition set_gripper_control_mode_request_desc : wlc_desc := Desc [
  Field 2 WLC_OPTIONAL WLC_ENUM 1 0 1 "mode" "has_mode" 4 0 0 [16; 0; 0] 0 0 None None] WLC_LOOKUP_LINEAR.

Definition set_gripper_control_mode_response_desc : wlc_desc := Desc [] WLC_LOOKUP_LINEAR.

Definition motor_register_read_request_desc : wlc_desc := Desc [
  Field 2 WLC_OPTIONAL WLC_U8 1 0 1 "joint_id" "has_joint_id" 1 0 0 [16; 0; 0] 0 0 None None;
  Field 3 WLC_OPTIONAL WLC_U8 1 0 1 "register_id" "has_register_id" 1 0 0 [24; 0; 0] 0 0 None None] WLC_LOOKUP_LINEAR.

Definition motor_register_read_response_desc : wlc_desc := Desc [
  Field 3 WLC_OPTIONAL WLC_U8 0 0 1 "joint_id" "has_joint_id" 1 0 0 [24; 0; 0] 0 0 None None;
  Field 4 WLC_OPTIONAL WLC_U8 0 0 1 "register_id" "has_register_id" 1 0 0 [32; 0; 0] 0 0 None None;
  Field 5 WLC_OPTIONAL WLC_FLOAT32 0 5 1 "value" "has_value" 4 0 0 [45; 0; 0] 0 0 None None] WLC_LOOKUP_LINEAR.

Definition motor_register_write_request_desc : wlc_desc := Desc [
  Field 2 WLC_OPTIONAL WLC_U8 1 0 1 "joint_id" "has_joint_id" 1 0 0 [16; 0; 0] 0 0 None None;
  Field 3 WLC_OPTIONAL WLC_U8 1 0 1 "register_id" "has_register_id" 1 0 0 [24; 0; 0] 0 0 None None;
  Field 4 WLC_OPTIONAL WLC_FLOAT32 1 5 1 "value" "has_value" 4 0 0 [37; 0; 0] 0 0 None None] WLC_LOOKUP_LINEAR.

Definition motor_register_write_response_desc : wlc_desc := Desc [] WLC_LOOKUP_LINEAR.

Definition motor_store_parameters_request_desc : wlc_desc := Desc [
  Field 2 WLC_OPTIONAL WLC_U8 1 0 1 "joint_id" "has_joint_id" 1 0 0 [16; 0; 0] 0 0 None None] WLC_LOOKUP_LINEAR.

Definition motor_store_parameters_response_desc : wlc_desc := Desc [] WLC_LOOKUP_LINEAR.

Definition motor_set_zero_request_desc : wlc_desc := Desc [
  Field 2 WLC_OPTIONAL WLC_U8 1 0 1 "joint_id" "has_joint_id" 1 0 0 [16; 0; 0] 0 0 None None] WLC_LOOKUP_LINEAR.

Definition motor_set_zero_response_desc : wlc_desc := Desc [] WLC_LOOKUP_LINEAR.

Definition set_arm_mode_request_desc : wlc_desc := Desc [
  Field 2 WLC_OPTIONAL WLC_ENUM 1 0 1 "mode" "has_mode" 4 0 0 [16; 0; 0] 0 0 None None] WLC_LOOKUP_LINEAR.

Definition set_arm_mode_response_desc : wlc_desc := Desc [] WLC_LOOKUP_LINEAR.

Definition get_device_settings_request_desc : wlc_desc := Desc [] WLC_LOOKUP_LINEAR.

Definition get_device_settings_response_desc : wlc_desc := Desc [
  Field 3 WLC_OPTIONAL WLC_MESSAGE 0 2 1 "settings" "has_settings" 0 0 0 [26; 0; 0] 0 0 None (Some device_settings_desc)] WLC_LOOKUP_LINEAR.

Definition set_device_settings_request_desc : wlc_desc := Desc [
  Field 2 WLC_OPTIONAL WLC_MESSAGE 1 2 1 "settings" "has_settings" 0 0 0 [18; 0; 0] 0 0 None (Some device_settings_desc)] WLC_LOOKUP_LINEAR.

Definition set_device_settings_response_desc : wlc_desc := Desc [
  Field 3 WLC_OPTIONAL WLC_MESSAGE 0 2 1 "settings" "has_settings" 0 0 0 [26; 0; 0] 0 0 None (Some device_settings_desc)] WLC_LOOKUP_LINEAR.

Definition joint_mit_command_desc : wlc_desc := Desc [
  Field 1 WLC_PACKED WLC_FLOAT32 1 2 1 "position" "has_position" 4 6 0 [10; 0; 0] 0 0 None None;
  Field 2 WLC_PACKED WLC_FLOAT32 1 2 1 "velocity" "has_velocity" 4 6 0 [18; 0; 0] 0 0 None None;
  Field 3 WLC_PACKED WLC_FLOAT32 1 2 1 "torque" "has_torque" 4 6 0 [26; 0; 0] 0 0 None None;
  Field 4 WLC_PACKED WLC_FLOAT32 1 2 1 "kp" "has_kp" 4 6 0 [34; 0; 0] 0 0 None None;
  Field 5 WLC_PACKED WLC_FLOAT32 1 2 1 "kd" "has_kd" 4 6 0 [42; 0; 0] 0 0 None None;
  Field 6 WLC_OPTIONAL WLC_F32 1 5 1 "dt_us" "has_dt_us" 4 0 0 [53; 0; 0] 0 0 None None;
  Field 7 WLC_OPTIONAL WLC_F32 1 5 1 "sequence" "has_sequence" 4 0 0 [61; 0; 0] 0 0 None None;
  Field 8 WLC_OPTIONAL WLC_BOOL 1 0 1 "gravity_compensation" "has_gravity_compensation" 1 0 0 [64; 0; 0] 0 0 None None;
  Field 9 WLC_OPTIONAL WLC_F64 1 1 1 "sdk_timestamp_us" "has_sdk_timestamp_us" 8 0 0 [73; 0; 0] 0 0 None None;
  Field 10 WLC_OPTIONAL WLC_F64 1 1 1 "lease_token" "has_lease_token" 8 0 0 [81; 0; 0] 0 0 None None] WLC_LOOKUP_DENSE.

Definition emergency_stop_request_desc : wlc_desc := Desc [] WLC_LOOKUP_LINEAR.

Definition emergency_stop_response_desc : wlc_desc := Desc [] WLC_LOOKUP_LINEAR.

Definition gripper_mit_command_desc : wlc_desc := Desc [
  Field 1 WLC_OPTIONAL WLC_FLOAT32 1 5 1 "position" "has_position" 4 0 0 [13; 0; 0] 0 0 None None;
  Field 2 WLC_OPTIONAL WLC_FLOAT32 1 5 1 "velocity" "has_velocity" 4 0 0 [21; 0; 0] 0 0 None None;
  Field 3 WLC_OPTIONAL WLC_FLOAT32 1 5 1 "torque" "has_torque" 4 0 0 [29; 0; 0] 0 0 None None;
  Field 4 WLC_OPTIONAL WLC_FLOAT32 1 5 1 "kp" "has_kp" 4 0 0 [37; 0; 0] 0 0 None None;
  Field 5 WLC_OPTIONAL WLC_FLOAT32 1 5 1 "kd" "has_kd" 4 0 0 [45; 0; 0] 0 0 None None;
  Field 6 WLC_OPTIONAL WLC_F32 1 5 1 "dt_us" "has_dt_us" 4 0 0 [53; 0; 0] 0 0 None None;
  Field 7 WLC_OPTIONAL WLC_F32 1 5 1 "sequence" "has_sequence" 4 0 0 [61; 0; 0] 0 0 None None;
  Field 8 WLC_OPTIONAL WLC_BOOL 1 0 1 "gravity_compensation" "has_gravity_compensation" 1 0 0 [64; 0; 0] 0 0 None None;
  Field 9 WLC_OPTIONAL WLC_F64 1 1 1 "sdk_timestamp_us" "has_sdk_timestamp_us" 8 0 0 [73; 0; 0] 0 0 None None;
  Field 10 WLC_OPTIONAL WLC_F64 1 1 1 "lease_token" "has_lease_token" 8 0 0 [81; 0; 0] 0 0 None None] WLC_LOOKUP_DENSE.

Definition joint_position_velocity_command_desc : wlc_desc := Desc [
  Field 1 WLC_PACKED WLC_FLOAT32 1 2 1 "position" "has_position" 4 6 0 [10; 0; 0] 0 0 None None;
  Field 2 WLC_PACKED WLC_FLOAT32 1 2 1 "velocity" "has_velocity" 4 6 0 [18; 0; 0] 0 0 None None;
  Field 3 WLC_OPTIONAL WLC_U8 1 0 1 "enabled_mask" "has_enabled_mask" 1 0 0 [24; 0; 0] 0 0 None None;
  Field 4 WLC_OPTIONAL WLC_F32 1 5 1 "sequence" "has_sequence" 4 0 0 [37; 0; 0] 0 0 None None;
  Field 5 WLC_OPTIONAL WLC_F64 1 1 1 "sdk_timestamp_us" "has_sdk_timestamp_us" 8 0 0 [41; 0; 0] 0 0 None None;
  Field 6 WLC_OPTIONAL WLC_F64 1 1 1 "lease_token" "has_lease_token" 8 0 0 [49; 0; 0] 0 0 None None] WLC_LOOKUP_LINEAR.

Definition joint_velocity_command_desc : wlc_desc := Desc [
  Field 1 WLC_PACKED WLC_FLOAT32 1 2 1 "velocity" "has_velocity" 4 6 0 [10; 0; 0] 0 0 None None;
  Field 2 WLC_OPTIONAL WLC_U8 1 0 1 "enabled_mask" "has_enabled_mask" 1 0 0 [16; 0; 0] 0 0 None None;
  Field 3 WLC_OPTIONAL WLC_F32 1 5 1 "sequence" "has_sequence" 4 0 0 [29; 0; 0] 0 0 None None;
  Field 4 WLC_OPTIONAL WLC_F64 1 1 1 "sdk_timestamp_us" "has_sdk_timestamp_us" 8 0 0 [33; 0; 0] 0 0 None None;
  Field 5 WLC_OPTIONAL WLC_F64 1 1 1 "lease_token" "has_lease_token" 8 0 0 [41; 0; 0] 0 0 None None] WLC_LOOKUP_LINEAR.

Definition joint_pvt_command_desc : wlc_desc := Desc [
  Field 1 WLC_PACKED WLC_FLOAT32 1 2 1 "position" "has_position" 4 6 0 [10; 0; 0] 0 0 None None;
  Field 2 WLC_PACKED WLC_FLOAT32 1 2 1 "velocity_limit" "has_velocity_limit" 4 6 0 [18; 0; 0] 0 0 None None;
  Field 3 WLC_PACKED WLC_FLOAT32 1 2 1 "current_limit_normalized" "has_current_limit_normalized" 4 6 0 [26; 0; 0] 0 0 None None;
  Field 4 WLC_OPTIONAL WLC_U8 1 0 1 "enabled_mask" "has_enabled_mask" 1 0 0 [32; 0; 0] 0 0 None None;
  Field 5 WLC_OPTIONAL WLC_F32 1 5 1 "sequence" "has_sequence" 4 0 0 [45; 0; 0] 0 0 None None;
  Field 6 WLC_OPTIONAL WLC_F64 1 1 1 "sdk_timestamp_us" "has_sdk_timestamp_us" 8 0 0 [49; 0; 0] 0 0 None None;
  Field 7 WLC_OPTIONAL WLC_F64 1 1 1 "lease_token" "has_lease_token" 8 0 0 [57; 0; 0] 0 0 None None] WLC_LOOKUP_LINEAR.

Definition cartesian_pose_command_desc : wlc_desc := Desc [
  Field 1 WLC_PACKED WLC_FLOAT32 1 2 1 "transform" "has_transform" 4 16 0 [10; 0; 0] 0 0 None None;
  Field 2 WLC_PACKED WLC_FLOAT32 1 2 1 "kp" "has_kp" 4 6 0 [18; 0; 0] 0 0 None None;
  Field 3 WLC_PACKED WLC_FLOAT32 1 2 1 "kd" "has_kd" 4 6 0 [26; 0; 0] 0 0 None None;
  Field 4 WLC_OPTIONAL WLC_F32 1 5 1 "dt_us" "has_dt_us" 4 0 0 [37; 0; 0] 0 0 None None;
  Field 5 WLC_OPTIONAL WLC_F32 1 5 1 "sequence" "has_sequence" 4 0 0 [45; 0; 0] 0 0 None None;
  Field 6 WLC_OPTIONAL WLC_BOOL 1 0 1 "gravity_compensation" "has_gravity_compensation" 1 0 0 [48; 0; 0] 0 0 None None;
  Field 7 WLC_OPTIONAL WLC_F64 1 1 1 "sdk_timestamp_us" "has_sdk_timestamp_us" 8 0 0 [57; 0; 0] 0 0 None None;
  Field 8 WLC_OPTIONAL WLC_F64 1 1 1 "lease_token" "has_lease_token" 8 0 0 [65; 0; 0] 0 0 None None] WLC_LOOKUP_LINEAR.

Definition cartesian_velocity_command_desc : wlc_desc := Desc [
  Field 1 WLC_PACKED WLC_FLOAT32 1 2 1 "twist" "has_twist" 4 6 0 [10; 0; 0] 0 0 None None;
  Field 2 WLC_PACKED WLC_FLOAT32 1 2 1 "kp" "has_kp" 4 6 0 [18; 0; 0] 0 0 None None;
  Field 3 WLC_PACKED WLC_FLOAT32 1 2 1 "kd" "has_kd" 4 6 0 [26; 0; 0] 0 0 None None;
  Field 4 WLC_OPTIONAL WLC_F32 1 5 1 "dt_us" "has_dt_us" 4 0 0 [37; 0; 0] 0 0 None None;
  Field 5 WLC_OPTIONAL WLC_F32 1 5 1 "sequence" "has_sequence" 4 0 0 [45; 0; 0] 0 0 None None;
  Field 6 WLC_OPTIONAL WLC_BOOL 1 0 1 "gravity_compensation" "has_gravity_compensation" 1 0 0 [48; 0; 0] 0 0 None None;
  Field 7 WLC_OPTIONAL WLC_F64 1 1 1 "sdk_timestamp_us" "has_sdk_timestamp_us" 8 0 0 [57; 0; 0] 0 0 None None;
  Field 8 WLC_OPTIONAL WLC_F64 1 1 1 "lease_token" "has_lease_token" 8 0 0 [65; 0; 0] 0 0 None None] WLC_LOOKUP_LINEAR.

Definition gripper_position_velocity_command_desc : wlc_desc := Desc [
  Field 1 WLC_OPTIONAL WLC_FLOAT32 1 5 1 "position" "has_position" 4 0 0 [13; 0; 0] 0 0 None None;
  Field 2 WLC_OPTIONAL WLC_FLOAT32 1 5 1 "velocity" "has_velocity" 4 0 0 [21; 0; 0] 0 0 None None;
  Field 3 WLC_OPTIONAL WLC_F32 1 5 1 "sequence" "has_sequence" 4 0 0 [29; 0; 0] 0 0 None None;
  Field 4 WLC_OPTIONAL WLC_F64 1 1 1 "sdk_timestamp_us" "has_sdk_timestamp_us" 8 0 0 [33; 0; 0] 0 0 None None;
  Field 5 WLC_OPTIONAL WLC_F64 1 1 1 "lease_token" "has_lease_token" 8 0 0 [41; 0; 0] 0 0 None None] WLC_LOOKUP_LINEAR.

Definition gripper_velocity_command_desc : wlc_desc := Desc [
  Field 1 WLC_OPTIONAL WLC_FLOAT32 1 5 1 "velocity" "has_velocity" 4 0 0 [13; 0; 0] 0 0 None None;
  Field 2 WLC_OPTIONAL WLC_F32 1 5 1 "sequence" "has_sequence" 4 0 0 [21; 0; 0] 0 0 None None;
  Field 3 WLC_OPTIONAL WLC_F64 1 1 1 "sdk_timestamp_us" "has_sdk_timestamp_us" 8 0 0 [25; 0; 0] 0 0 None None;
  Field 4 WLC_OPTIONAL WLC_F64 1 1 1 "lease_token" "has_lease_token" 8 0 0 [33; 0; 0] 0 0 None None] WLC_LOOKUP_LINEAR.

Definition gripper_pvt_command_desc : wlc_desc := Desc [
  Field 1 WLC_OPTIONAL WLC_FLOAT32 1 5 1 "position" "has_position" 4 0 0 [13; 0; 0] 0 0 None None;
  Field 2 WLC_OPTIONAL WLC_FLOAT32 1 5 1 "velocity_limit" "has_velocity_limit" 4 0 0 [21; 0; 0] 0 0 None None;
  Field 3 WLC_OPTIONAL WLC_FLOAT32 1 5 1 "current_limit_normalized" "has_current_limit_normalized" 4 0 0 [29; 0; 0] 0 0 None None;
  Field 4 WLC_OPTIONAL WLC_F32 1 5 1 "sequence" "has_sequence" 4 0 0 [37; 0; 0] 0 0 None None;
  Field 5 WLC_OPTIONAL WLC_F64 1 1 1 "sdk_timestamp_us" "has_sdk_timestamp_us" 8 0 0 [41; 0; 0] 0 0 None None;
  Field 6 WLC_OPTIONAL WLC_F64 1 1 1 "lease_token" "has_lease_token" 8 0 0 [49; 0; 0] 0 0 None None] WLC_LOOKUP_LINEAR.

Definition image_version_desc : wlc_desc := Desc [
  Field 1 WLC_OPTIONAL WLC_U8 1 0 1 "major" "has_major" 1 0 0 [8; 0; 0] 0 0 None None;
  Field 2 WLC_OPTIONAL WLC_U8 1 0 1 "minor" "has_minor" 1 0 0 [16; 0; 0] 0 0 None None;
  Field 3 WLC_OPTIONAL WLC_U16 1 0 1 "revision" "has_revision" 2 0 0 [24; 0; 0] 0 0 None None;
  Field 4 WLC_OPTIONAL WLC_U32 1 0 1 "build" "has_build" 4 0 0 [32; 0; 0] 0 0 None None] WLC_LOOKUP_LINEAR.

Definition boot_status_info_desc : wlc_desc := Desc [
  Field 1 WLC_OPTIONAL WLC_U16 1 0 1 "protocol_version" "has_protocol_version" 2 0 0 [8; 0; 0] 0 0 None None;
  Field 2 WLC_OPTIONAL WLC_ENUM 1 0 1 "boot_state" "has_boot_state" 4 0 0 [16; 0; 0] 0 0 None None;
  Field 3 WLC_OPTIONAL WLC_ENUM 1 0 1 "recovery_reason" "has_recovery_reason" 4 0 0 [24; 0; 0] 0 0 None None;
  Field 4 WLC_OPTIONAL WLC_ENUM 1 0 1 "active_slot" "has_active_slot" 4 0 0 [32; 0; 0] 0 0 None None;
  Field 5 WLC_OPTIONAL WLC_ENUM 1 0 1 "confirmed_slot" "has_confirmed_slot" 4 0 0 [40; 0; 0] 0 0 None None;
  Field 6 WLC_OPTIONAL WLC_ENUM 1 0 1 "pending_slot" "has_pending_slot" 4 0 0 [48; 0; 0] 0 0 None None;
  Field 7 WLC_OPTIONAL WLC_U16 1 0 1 "write_align" "has_write_align" 2 0 0 [56; 0; 0] 0 0 None None;
  Field 8 WLC_OPTIONAL WLC_U16 1 0 1 "max_chunk_size" "has_max_chunk_size" 2 0 0 [64; 0; 0] 0 0 None None;
  Field 9 WLC_OPTIONAL WLC_F32 1 5 1 "slot0_address" "has_slot0_address" 4 0 0 [77; 0; 0] 0 0 None None;
  Field 10 WLC_OPTIONAL WLC_F32 1 5 1 "slot0_size" "has_slot0_size" 4 0 0 [85; 0; 0] 0 0 None None;
  Field 11 WLC_OPTIONAL WLC_F32 1 5 1 "slot1_address" "has_slot1_address" 4 0 0 [93; 0; 0] 0 0 None None;
  Field 12 WLC_OPTIONAL WLC_F32 1 5 1 "slot1_size" "has_slot1_size" 4 0 0 [101; 0; 0] 0 0 None None;
  Field 13 WLC_OPTIONAL WLC_F64 1 1 1 "bytes_written" "has_bytes_written" 8 0 0 [105; 0; 0] 0 0 None None;
  Field 14 WLC_OPTIONAL WLC_F32 0 5 1 "active_transfer_id" "has_active_transfer_id" 4 0 0 [117; 0; 0] 0 0 None None] WLC_LOOKUP_DENSE.

Definition bulk_begin_desc : wlc_desc := Desc [
  Field 1 WLC_OPTIONAL WLC_F32 1 5 1 "transfer_id" "has_transfer_id" 4 0 0 [13; 0; 0] 0 0 None None;
  Field 2 WLC_OPTIONAL WLC_F64 1 1 1 "total_length" "has_total_length" 8 0 0 [17; 0; 0] 0 0 None None;
  Field 3 WLC_OPTIONAL WLC_F32 1 5 1 "requested_chunk_size" "has_requested_chunk_size" 4 0 0 [29; 0; 0] 0 0 None None;
  Field 4 WLC_OPTIONAL WLC_F32 1 5 1 "object_crc32c" "has_object_crc32c" 4 0 0 [37; 0; 0] 0 0 None None] WLC_LOOKUP_LINEAR.

Definition bulk_chunk_desc : wlc_desc := Desc [
  Field 1 WLC_OPTIONAL WLC_F32 1 5 1 "transfer_id" "has_transfer_id" 4 0 0 [13; 0; 0] 0 0 None None;
  Field 2 WLC_OPTIONAL WLC_F64 1 1 1 "offset" "has_offset" 8 0 0 [17; 0; 0] 0 0 None None;
  Field 3 WLC_OPTIONAL WLC_BYTES 1 2 1 "data" "has_data" 16 0 2031 [26; 0; 0] 0 0 None None] WLC_LOOKUP_LINEAR.

Definition bulk_end_desc : wlc_desc := Desc [
  Field 1 WLC_OPTIONAL WLC_F32 1 5 1 "transfer_id" "has_transfer_id" 4 0 0 [13; 0; 0] 0 0 None None;
  Field 2 WLC_OPTIONAL WLC_F64 1 1 1 "total_length" "has_total_length" 8 0 0 [17; 0; 0] 0 0 None None;
  Field 3 WLC_OPTIONAL WLC_F32 1 5 1 "object_crc32c" "has_object_crc32c" 4 0 0 [29; 0; 0] 0 0 None None] WLC_LOOKUP_LINEAR.

Definition bulk_abort_desc : wlc_desc := Desc [
  Field 1 WLC_OPTIONAL WLC_F32 1 5 1 "transfer_id" "has_transfer_id" 4 0 0 [13; 0; 0] 0 0 None None;
  Field 2 WLC_OPTIONAL WLC_I32 1 0 1 "reason" "has_reason" 4 0 0 [16; 0; 0] 0 0 None None] WLC_LOOKUP_LINEAR.

Definition bulk_status_desc : wlc_desc := Desc [
  Field 1 WLC_OPTIONAL WLC_F32 1 5 1 "transfer_id" "has_transfer_id" 4 0 0 [13; 0; 0] 0 0 None None;
  Field 2 WLC_OPTIONAL WLC_ENUM 1 0 1 "phase" "has_phase" 4 0 0 [16; 0; 0] 0 0 None None;
  Field 3 WLC_OPTIONAL WLC_ENUM 1 0 1 "code" "has_code" 4 0 0 [24; 0; 0] 0 0 None None;
  Field 4 WLC_OPTIONAL WLC_F64 1 1 1 "next_offset" "has_next_offset" 8 0 0 [33; 0; 0] 0 0 None None;
  Field 5 WLC_OPTIONAL WLC_F32 1 5 1 "accepted_chunk_size" "has_accepted_chunk_size" 4 0 0 [45; 0; 0] 0 0 None None] WLC_LOOKUP_LINEAR.

Definition get_boot_status_request_desc : wlc_desc := Desc [
  Field 1 WLC_OPTIONAL WLC_U32 1 0 1 "operation_id" "has_operation_id" 4 0 0 [8; 0; 0] 0 0 None None] WLC_LOOKUP_LINEAR.

Definition get_boot_status_response_desc : wlc_desc := Desc [
  Field 1 WLC_OPTIONAL WLC_U32 1 0 1 "operation_id" "has_operation_id" 4 0 0 [8; 0; 0] 0 0 None None;
  Field 2 WLC_OPTIONAL WLC_ENUM 1 0 1 "status" "has_status" 4 0 0 [16; 0; 0] 0 0 None None;
  Field 3 WLC_OPTIONAL WLC_MESSAGE 0 2 1 "info" "has_info" 0 0 0 [26; 0; 0] 0 0 None (Some boot_status_info_desc)] WLC_LOOKUP_LINEAR.

Definition start_upgrade_request_desc : wlc_desc := Desc [
  Field 1 WLC_OPTIONAL WLC_U32 1 0 1 "operation_id" "has_operation_id" 4 0 0 [8; 0; 0] 0 0 None None;
  Field 2 WLC_OPTIONAL WLC_ENUM 1 0 1 "image_id" "has_image_id" 4 0 0 [16; 0; 0] 0 0 None None;
  Field 3 WLC_OPTIONAL WLC_ENUM 1 0 1 "target_slot" "has_target_slot" 4 0 0 [24; 0; 0] 0 0 None None;
  Field 4 WLC_OPTIONAL WLC_U8 1 0 1 "flags" "has_flags" 1 0 0 [32; 0; 0] 0 0 None None;
  Field 5 WLC_OPTIONAL WLC_MESSAGE 1 2 1 "image_version" "has_image_version" 0 0 0 [42; 0; 0] 0 0 None (Some image_version_desc);
  Field 6 WLC_OPTIONAL WLC_F64 1 1 1 "image_size" "has_image_size" 8 0 0 [49; 0; 0] 0 0 None None;
  Field 7 WLC_OPTIONAL WLC_F32 1 5 1 "image_crc32c" "has_image_crc32c" 4 0 0 [61; 0; 0] 0 0 None None] WLC_LOOKUP_LINEAR.

Definition start_upgrade_response_desc : wlc_desc := Desc [
  Field 1 WLC_OPTIONAL WLC_U32 1 0 1 "operation_id" "has_operation_id" 4 0 0 [8; 0; 0] 0 0 None None;
  Field 2 WLC_OPTIONAL WLC_ENUM 1 0 1 "status" "has_status" 4 0 0 [16; 0; 0] 0 0 None None;
  Field 3 WLC_OPTIONAL WLC_F32 0 5 1 "transfer_id" "has_transfer_id" 4 0 0 [29; 0; 0] 0 0 None None;
  Field 4 WLC_OPTIONAL WLC_F64 0 1 1 "next_offset" "has_next_offset" 8 0 0 [33; 0; 0] 0 0 None None;
  Field 5 WLC_OPTIONAL WLC_U16 0 0 1 "write_align" "has_write_align" 2 0 0 [40; 0; 0] 0 0 None None;
  Field 6 WLC_OPTIONAL WLC_U16 0 0 1 "max_chunk_size" "has_max_chunk_size" 2 0 0 [48; 0; 0] 0 0 None None] WLC_LOOKUP_LINEAR.

Definition reboot_request_desc : wlc_desc := Desc [
  Field 1 WLC_OPTIONAL WLC_U32 1 0 1 "operation_id" "has_operation_id" 4 0 0 [8; 0; 0] 0 0 None None;
  Field 2 WLC_OPTIONAL WLC_ENUM 1 0 1 "mode" "has_mode" 4 0 0 [16; 0; 0] 0 0 None None] WLC_LOOKUP_LINEAR.

Definition reboot_response_desc : wlc_desc := Desc [
  Field 1 WLC_OPTIONAL WLC_U32 1 0 1 "operation_id" "has_operation_id" 4 0 0 [8; 0; 0] 0 0 None None;
  Field 2 WLC_OPTIONAL WLC_ENUM 1 0 1 "status" "has_status" 4 0 0 [16; 0; 0] 0 0 None None;
  Field 3 WLC_OPTIONAL WLC_ENUM 1 0 1 "mode" "has_mode" 4 0 0 [24; 0; 0] 0 0 None None] WLC_LOOKUP_LINEAR.

(** Every table of the protocol. *)
Definition fci_descs : list wlc_desc :=
  [semantic_version_desc;
   device_info_desc;
   device_settings_desc;
   arm_status_desc;
   motor_feedback_desc;
   arm_diagnostics_desc;
   set_zero_request_desc;
   set_zero_response_desc;
   clear_error_request_desc;
   clear_error_response_desc;
   home_request_desc;
   home_response_desc;
   clear_faults_request_desc;
   clear_faults_response_desc;
   acquire_control_lease_request_desc;
   acquire_control_lease_response_desc;
   release_control_lease_request_desc;
   release_control_lease_response_desc;
   get_motor_feedback_request_desc;
   get_motor_feedback_response_desc;
   get_device_info_request_desc;
   get_device_info_response_desc;
   set_device_info_request_desc;
   set_device_info_response_desc;
   set_arm_control_mode_request_desc;
   set_arm_control_mode_response_desc;
   set_gripper_control_mode_request_desc;
   set_gripper_control_mode_response_desc;
   motor_register_read_request_desc;
   motor_register_read_response_desc;
   motor_register_write_request_desc;
   motor_register_write_response_desc;
   motor_store_parameters_request_desc;
   motor_store_parameters_response_desc;
   motor_set_zero_request_desc;
   motor_set_zero_response_desc;
   set_arm_mode_request_desc;
   set_arm_mode_response_desc;
   get_device_settings_request_desc;
   get_device_settings_response_desc;
   set_device_settings_request_desc;
   set_device_settings_response_desc;
   joint_mit_command_desc;
   emergency_stop_request_desc;
   emergency_stop_response_desc;
   gripper_mit_command_desc;
   joint_position_velocity_command_desc;
   joint_velocity_command_desc;
   joint_pvt_command_desc;
   cartesian_pose_command_desc;
   cartesian_velocity_command_desc;
   gripper_position_velocity_command_desc;
   gripper_velocity_command_desc;
   gripper_pvt_command_desc;
   image_version_desc;
   boot_status_info_desc;
   bulk_begin_desc;
   bulk_chunk_desc;
   bulk_end_desc;
   bulk_abort_desc;
   bulk_status_desc;
   get_boot_status_request_desc;
   get_boot_status_response_desc;
   start_upgrade_request_desc;
   start_upgrade_response_desc;
   reboot_request_desc;
   reboot_response_desc].
