(* ===== verification/FciApi.v ===== *)
(** * The API of every message

    [generated/wirelink/codec/fci_device.c], lines 1248-8603: the functions of
    each message are those of the codec and of the value layer at its table.
    Arguments the functions check against null are not null here. *)

From S2P Require Import Prelude WlcWire WlcSchema WlcCodec WlcHash WlcValue FciMessages.

(** *** [semantic_version] *)

Definition semantic_version_clear := wlc_clear semantic_version_desc.
Definition semantic_version_encoded_size := wlc_encoded_size semantic_version_desc.
Definition semantic_version_encode := wlc_encode semantic_version_desc.
Definition semantic_version_decode := wlc_decode semantic_version_desc.
Definition semantic_version_wlc_detail_fingerprint := wlc_fingerprint semantic_version_desc.
Definition semantic_version_value_defaults := value_defaults semantic_version_desc.
Definition semantic_version_value_copy_fields := value_copy_fields semantic_version_desc.
Definition semantic_version_wlc_detail_value_copy := value_copy semantic_version_desc.
Definition semantic_version_value_clear := value_clear semantic_version_desc.
Definition semantic_version_value_from_view := value_from_view semantic_version_desc.
Definition semantic_version_value_borrow := value_borrow semantic_version_desc.
Definition semantic_version_value_to_view := value_to_view semantic_version_desc.
Definition semantic_version_value_encoded_size := value_encoded_size semantic_version_desc.
Definition semantic_version_value_encode := value_encode semantic_version_desc.
Definition semantic_version_value_decode := value_decode semantic_version_desc.

(** *** [device_info] *)

Definition device_info_clear := wlc_clear device_info_desc.
Definition device_info_encoded_size := wlc_encoded_size device_info_desc.
Definition device_info_encode := wlc_encode device_info_desc.
Definition device_info_decode := wlc_decode device_info_desc.
Definition device_info_wlc_detail_fingerprint := wlc_fingerprint device_info_desc.
Definition device_info_value_defaults := value_defaults device_info_desc.
Definition device_info_value_copy_fields := value_copy_fields device_info_desc.
Definition device_info_wlc_detail_value_copy := value_copy device_info_desc.
Definition device_info_value_clear := value_clear device_info_desc.
Definition device_info_value_from_view := value_from_view device_info_desc.
Definition device_info_value_borrow := value_borrow device_info_desc.
Definition device_info_value_to_view := value_to_view device_info_desc.
Definition device_info_value_encoded_size := value_encoded_size device_info_desc.
Definition device_info_value_encode := value_encode device_info_desc.
Definition device_info_value_decode := value_decode device_info_desc.

(** *** [device_settings] *)

Definition device_settings_clear := wlc_clear device_settings_desc.
Definition device_settings_encoded_size := wlc_encoded_size device_settings_desc.
Definition device_settings_encode := wlc_encode device_settings_desc.
Definition device_settings_decode := wlc_decode device_settings_desc.
Definition device_settings_wlc_detail_fingerprint := wlc_fingerprint device_settings_desc.
Definition device_settings_value_defaults := value_defaults device_settings_desc.
Definition device_settings_value_copy_fields := value_copy_fields device_settings_desc.
Definition device_settings_wlc_detail_value_copy := value_copy device_settings_desc.
Definition device_settings_value_clear := value_clear device_settings_desc.
Definition device_settings_value_from_view := value_from_view device_settings_desc.
Definition device_settings_value_borrow := value_borrow device_settings_desc.
Definition device_settings_value_to_view := value_to_view device_settings_desc.
Definition device_settings_value_encoded_size := value_encoded_size device_settings_desc.
Definition device_settings_value_encode := value_encode device_settings_desc.
Definition device_settings_value_decode := value_decode device_settings_desc.

(** *** [arm_status] *)

Definition arm_status_clear := wlc_clear arm_status_desc.
Definition arm_status_encoded_size := wlc_encoded_size arm_status_desc.
Definition arm_status_encode := wlc_encode arm_status_desc.
Definition arm_status_decode := wlc_decode arm_status_desc.
Definition arm_status_wlc_detail_fingerprint := wlc_fingerprint arm_status_desc.
Definition arm_status_value_defaults := value_defaults arm_status_desc.
Definition arm_status_value_copy_fields := value_copy_fields arm_status_desc.
Definition arm_status_wlc_detail_value_copy := value_copy arm_status_desc.
Definition arm_status_value_clear := value_clear arm_status_desc.
Definition arm_status_value_from_view := value_from_view arm_status_desc.
Definition arm_status_value_borrow := value_borrow arm_status_desc.
Definition arm_status_value_to_view := value_to_view arm_status_desc.
Definition arm_status_value_encoded_size := value_encoded_size arm_status_desc.
Definition arm_status_value_encode := value_encode arm_status_desc.
Definition arm_status_value_decode := value_decode arm_status_desc.

(** *** [motor_feedback] *)

Definition motor_feedback_clear := wlc_clear motor_feedback_desc.
Definition motor_feedback_encoded_size := wlc_encoded_size motor_feedback_desc.
Definition motor_feedback_encode := wlc_encode motor_feedback_desc.
Definition motor_feedback_decode := wlc_decode motor_feedback_desc.
Definition motor_feedback_wlc_detail_fingerprint := wlc_fingerprint motor_feedback_desc.
Definition motor_feedback_value_defaults := value_defaults motor_feedback_desc.
Definition motor_feedback_value_copy_fields := value_copy_fields motor_feedback_desc.
Definition motor_feedback_wlc_detail_value_copy := value_copy motor_feedback_desc.
Definition motor_feedback_value_clear := value_clear motor_feedback_desc.
Definition motor_feedback_value_from_view := value_from_view motor_feedback_desc.
Definition motor_feedback_value_borrow := value_borrow motor_feedback_desc.
Definition motor_feedback_value_to_view := value_to_view motor_feedback_desc.
Definition motor_feedback_value_encoded_size := value_encoded_size motor_feedback_desc.
Definition motor_feedback_value_encode := value_encode motor_feedback_desc.
Definition motor_feedback_value_decode := value_decode motor_feedback_desc.

(** *** [arm_diagnostics] *)

Definition arm_diagnostics_clear := wlc_clear arm_diagnostics_desc.
Definition arm_diagnostics_encoded_size := wlc_encoded_size arm_diagnostics_desc.
Definition arm_diagnostics_encode := wlc_encode arm_diagnostics_desc.
Definition arm_diagnostics_decode := wlc_decode arm_diagnostics_desc.
Definition arm_diagnostics_wlc_detail_fingerprint := wlc_fingerprint arm_diagnostics_desc.
Definition arm_diagnostics_value_defaults := value_defaults arm_diagnostics_desc.
Definition arm_diagnostics_value_copy_fields := value_copy_fields arm_diagnostics_desc.
Definition arm_diagnostics_wlc_detail_value_copy := value_copy arm_diagnostics_desc.
Definition arm_diagnostics_value_clear := value_clear arm_diagnostics_desc.
Definition arm_diagnostics_value_from_view := value_from_view arm_diagnostics_desc.
Definition arm_diagnostics_value_borrow := value_borrow arm_diagnostics_desc.
Definition arm_diagnostics_value_to_view := value_to_view arm_diagnostics_desc.
Definition arm_diagnostics_value_encoded_size := value_encoded_size arm_diagnostics_desc.
Definition arm_diagnostics_value_encode := value_encode arm_diagnostics_desc.
Definition arm_diagnostics_value_decode := value_decode arm_diagnostics_desc.

(** *** [set_zero_request] *)

Definition set_zero_request_clear := wlc_clear set_zero_request_desc.
Definition set_zero_request_encoded_size := wlc_encoded_size set_zero_request_desc.
Definition set_zero_request_encode := wlc_encode set_zero_request_desc.
Definition set_zero_request_decode := wlc_decode set_zero_request_desc.
Definition set_zero_request_wlc_detail_fingerprint := wlc_fingerprint set_zero_request_desc.
Definition set_zero_request_value_defaults := value_defaults set_zero_request_desc.
Definition set_zero_request_value_copy_fields := value_copy_fields set_zero_request_desc.
Definition set_zero_request_wlc_detail_value_copy := value_copy set_zero_request_desc.
Definition set_zero_request_value_clear := value_clear set_zero_request_desc.
Definition set_zero_request_value_from_view := value_from_view set_zero_request_desc.
Definition set_zero_request_value_borrow := value_borrow set_zero_request_desc.
Definition set_zero_request_value_to_view := value_to_view set_zero_request_desc.
Definition set_zero_request_value_encoded_size := value_encoded_size set_zero_request_desc.
Definition set_zero_request_value_encode := value_encode set_zero_request_desc.
Definition set_zero_request_value_decode := value_decode set_zero_request_desc.

(** *** [set_zero_response] *)

Definition set_zero_response_clear := wlc_clear set_zero_response_desc.
Definition set_zero_response_encoded_size := wlc_encoded_size set_zero_response_desc.
Definition set_zero_response_encode := wlc_encode set_zero_response_desc.
Definition set_zero_response_decode := wlc_decode set_zero_response_desc.
Definition set_zero_response_wlc_detail_fingerprint := wlc_fingerprint set_zero_response_desc.
Definition set_zero_response_value_defaults := value_defaults set_zero_response_desc.
Definition set_zero_response_value_copy_fields := value_copy_fields set_zero_response_desc.
Definition set_zero_response_wlc_detail_value_copy := value_copy set_zero_response_desc.
Definition set_zero_response_value_clear := value_clear set_zero_response_desc.
Definition set_zero_response_value_from_view := value_from_view set_zero_response_desc.
Definition set_zero_response_value_borrow := value_borrow set_zero_response_desc.
Definition set_zero_response_value_to_view := value_to_view set_zero_response_desc.
Definition set_zero_response_value_encoded_size := value_encoded_size set_zero_response_desc.
Definition set_zero_response_value_encode := value_encode set_zero_response_desc.
Definition set_zero_response_value_decode := value_decode set_zero_response_desc.

(** *** [clear_error_request] *)

Definition clear_error_request_clear := wlc_clear clear_error_request_desc.
Definition clear_error_request_encoded_size := wlc_encoded_size clear_error_request_desc.
Definition clear_error_request_encode := wlc_encode clear_error_request_desc.
Definition clear_error_request_decode := wlc_decode clear_error_request_desc.
Definition clear_error_request_wlc_detail_fingerprint := wlc_fingerprint clear_error_request_desc.
Definition clear_error_request_value_defaults := value_defaults clear_error_request_desc.
Definition clear_error_request_value_copy_fields := value_copy_fields clear_error_request_desc.
Definition clear_error_request_wlc_detail_value_copy := value_copy clear_error_request_desc.
Definition clear_error_request_value_clear := value_clear clear_error_request_desc.
Definition clear_error_request_value_from_view := value_from_view clear_error_request_desc.
Definition clear_error_request_value_borrow := value_borrow clear_error_request_desc.
Definition clear_error_request_value_to_view := value_to_view clear_error_request_desc.
Definition clear_error_request_value_encoded_size := value_encoded_size clear_error_request_desc.
Definition clear_error_request_value_encode := value_encode clear_error_request_desc.
Definition clear_error_request_value_decode := value_decode clear_error_request_desc.

(** *** [clear_error_response] *)

Definition clear_error_response_clear := wlc_clear clear_error_response_desc.
Definition clear_error_response_encoded_size := wlc_encoded_size clear_error_response_desc.
Definition clear_error_response_encode := wlc_encode clear_error_response_desc.
Definition clear_error_response_decode := wlc_decode clear_error_response_desc.
Definition clear_error_response_wlc_detail_fingerprint := wlc_fingerprint clear_error_response_desc.
Definition clear_error_response_value_defaults := value_defaults clear_error_response_desc.
Definition clear_error_response_value_copy_fields := value_copy_fields clear_error_response_desc.
Definition clear_error_response_wlc_detail_value_copy := value_copy clear_error_response_desc.
Definition clear_error_response_value_clear := value_clear clear_error_response_desc.
Definition clear_error_response_value_from_view := value_from_view clear_error_response_desc.
Definition clear_error_response_value_borrow := value_borrow clear_error_response_desc.
Definition clear_error_response_value_to_view := value_to_view clear_error_response_desc.
Definition clear_error_response_value_encoded_size := value_encoded_size clear_error_response_desc.
Definition clear_error_response_value_encode := value_encode clear_error_response_desc.
Definition clear_error_response_value_decode := value_decode clear_error_response_desc.

(** *** [home_request] *)

Definition home_request_clear := wlc_clear home_request_desc.
Definition home_request_encoded_size := wlc_encoded_size home_request_desc.
Definition home_request_encode := wlc_encode home_request_desc.
Definition home_request_decode := wlc_decode home_request_desc.
Definition home_request_wlc_detail_fingerprint := wlc_fingerprint home_request_desc.
Definition home_request_value_defaults := value_defaults home_request_desc.
Definition home_request_value_copy_fields := value_copy_fields home_request_desc.
Definition home_request_wlc_detail_value_copy := value_copy home_request_desc.
Definition home_request_value_clear := value_clear home_request_desc.
Definition home_request_value_from_view := value_from_view home_request_desc.
Definition home_request_value_borrow := value_borrow home_request_desc.
Definition home_request_value_to_view := value_to_view home_request_desc.
Definition home_request_value_encoded_size := value_encoded_size home_request_desc.
Definition home_request_value_encode := value_encode home_request_desc.
Definition home_request_value_decode := value_decode home_request_desc.

(** *** [home_response] *)

Definition home_response_clear := wlc_clear home_response_desc.
Definition home_response_encoded_size := wlc_encoded_size home_response_desc.
Definition home_response_encode := wlc_encode home_response_desc.
Definition home_response_decode := wlc_decode home_response_desc.
Definition home_response_wlc_detail_fingerprint := wlc_fingerprint home_response_desc.
Definition home_response_value_defaults := value_defaults home_response_desc.
Definition home_response_value_copy_fields := value_copy_fields home_response_desc.
Definition home_response_wlc_detail_value_copy := value_copy home_response_desc.
Definition home_response_value_clear := value_clear home_response_desc.
Definition home_response_value_from_view := value_from_view home_response_desc.
Definition home_response_value_borrow := value_borrow home_response_desc.
Definition home_response_value_to_view := value_to_view home_response_desc.
Definition home_response_value_encoded_size := value_encoded_size home_response_desc.
Definition home_response_value_encode := value_encode home_response_desc.
Definition home_response_value_decode := value_decode home_response_desc.

(** *** [clear_faults_request] *)

Definition clear_faults_request_clear := wlc_clear clear_faults_request_desc.
Definition clear_faults_request_encoded_size := wlc_encoded_size clear_faults_request_desc.
Definition clear_faults_request_encode := wlc_encode clear_faults_request_desc.
Definition clear_faults_request_decode := wlc_decode clear_faults_request_desc.
Definition clear_faults_request_wlc_detail_fingerprint := wlc_fingerprint clear_faults_request_desc.
Definition clear_faults_request_value_defaults := value_defaults clear_faults_request_desc.
Definition clear_faults_request_value_copy_fields := value_copy_fields clear_faults_request_desc.
Definition clear_faults_request_wlc_detail_value_copy := value_copy clear_faults_request_desc.
Definition clear_faults_request_value_clear := value_clear clear_faults_request_desc.
Definition clear_faults_request_value_from_view := value_from_view clear_faults_request_desc.
Definition clear_faults_request_value_borrow := value_borrow clear_faults_request_desc.
Definition clear_faults_request_value_to_view := value_to_view clear_faults_request_desc.
Definition clear_faults_request_value_encoded_size := value_encoded_size clear_faults_request_desc.
Definition clear_faults_request_value_encode := value_encode clear_faults_request_desc.
Definition clear_faults_request_value_decode := value_decode clear_faults_request_desc.

(** *** [clear_faults_response] *)

Definition clear_faults_response_clear := wlc_clear clear_faults_response_desc.
Definition clear_faults_response_encoded_size := wlc_encoded_size clear_faults_response_desc.
Definition clear_faults_response_encode := wlc_encode clear_faults_response_desc.
Definition clear_faults_response_decode := wlc_decode clear_faults_response_desc.
Definition clear_faults_response_wlc_detail_fingerprint := wlc_fingerprint clear_faults_response_desc.
Definition clear_faults_response_value_defaults := value_defaults clear_faults_response_desc.
Definition clear_faults_response_value_copy_fields := value_copy_fields clear_faults_response_desc.
Definition clear_faults_response_wlc_detail_value_copy := value_copy clear_faults_response_desc.
Definition clear_faults_response_value_clear := value_clear clear_faults_response_desc.
Definition clear_faults_response_value_from_view := value_from_view clear_faults_response_desc.
Definition clear_faults_response_value_borrow := value_borrow clear_faults_response_desc.
Definition clear_faults_response_value_to_view := value_to_view clear_faults_response_desc.
Definition clear_faults_response_value_encoded_size := value_encoded_size clear_faults_response_desc.
Definition clear_faults_response_value_encode := value_encode clear_faults_response_desc.
Definition clear_faults_response_value_decode := value_decode clear_faults_response_desc.

(** *** [acquire_control_lease_request] *)

Definition acquire_control_lease_request_clear := wlc_clear acquire_control_lease_request_desc.
Definition acquire_control_lease_request_encoded_size := wlc_encoded_size acquire_control_lease_request_desc.
Definition acquire_control_lease_request_encode := wlc_encode acquire_control_lease_request_desc.
Definition acquire_control_lease_request_decode := wlc_decode acquire_control_lease_request_desc.
Definition acquire_control_lease_request_wlc_detail_fingerprint := wlc_fingerprint acquire_control_lease_request_desc.
Definition acquire_control_lease_request_value_defaults := value_defaults acquire_control_lease_request_desc.
Definition acquire_control_lease_request_value_copy_fields := value_copy_fields acquire_control_lease_request_desc.
Definition acquire_control_lease_request_wlc_detail_value_copy := value_copy acquire_control_lease_request_desc.
Definition acquire_control_lease_request_value_clear := value_clear acquire_control_lease_request_desc.
Definition acquire_control_lease_request_value_from_view := value_from_view acquire_control_lease_request_desc.
Definition acquire_control_lease_request_value_borrow := value_borrow acquire_control_lease_request_desc.
Definition acquire_control_lease_request_value_to_view := value_to_view acquire_control_lease_request_desc.
Definition acquire_control_lease_request_value_encoded_size := value_encoded_size acquire_control_lease_request_desc.
Definition acquire_control_lease_request_value_encode := value_encode acquire_control_lease_request_desc.
Definition acquire_control_lease_request_value_decode := value_decode acquire_control_lease_request_desc.

(** *** [acquire_control_lease_response] *)

Definition acquire_control_lease_response_clear := wlc_clear acquire_control_lease_response_desc.
Definition acquire_control_lease_response_encoded_size := wlc_encoded_size acquire_control_lease_response_desc.
Definition acquire_control_lease_response_encode := wlc_encode acquire_control_lease_response_desc.
Definition acquire_control_lease_response_decode := wlc_decode acquire_control_lease_response_desc.
Definition acquire_control_lease_response_wlc_detail_fingerprint := wlc_fingerprint acquire_control_lease_response_desc.
Definition acquire_control_lease_response_value_defaults := value_defaults acquire_control_lease_response_desc.
Definition acquire_control_lease_response_value_copy_fields := value_copy_fields acquire_control_lease_response_desc.
Definition acquire_control_lease_response_wlc_detail_value_copy := value_copy acquire_control_lease_response_desc.
Definition acquire_control_lease_response_value_clear := value_clear acquire_control_lease_response_desc.
Definition acquire_control_lease_response_value_from_view := value_from_view acquire_control_lease_response_desc.
Definition acquire_control_lease_response_value_borrow := value_borrow acquire_control_lease_response_desc.
Definition acquire_control_lease_response_value_to_view := value_to_view acquire_control_lease_response_desc.
Definition acquire_control_lease_response_value_encoded_size := value_encoded_size acquire_control_lease_response_desc.
Definition acquire_control_lease_response_value_encode := value_encode acquire_control_lease_response_desc.
Definition acquire_control_lease_response_value_decode := value_decode acquire_control_lease_response_desc.

(** *** [release_control_lease_request] *)

Definition release_control_lease_request_clear := wlc_clear release_control_lease_request_desc.
Definition release_control_lease_request_encoded_size := wlc_encoded_size release_control_lease_request_desc.
Definition release_control_lease_request_encode := wlc_encode release_control_lease_request_desc.
Definition release_control_lease_request_decode := wlc_decode release_control_lease_request_desc.
Definition release_control_lease_request_wlc_detail_fingerprint := wlc_fingerprint release_control_lease_request_desc.
Definition release_control_lease_request_value_defaults := value_defaults release_control_lease_request_desc.
Definition release_control_lease_request_value_copy_fields := value_copy_fields release_control_lease_request_desc.
Definition release_control_lease_request_wlc_detail_value_copy := value_copy release_control_lease_request_desc.
Definition release_control_lease_request_value_clear := value_clear release_control_lease_request_desc.
Definition release_control_lease_request_value_from_view := value_from_view release_control_lease_request_desc.
Definition release_control_lease_request_value_borrow := value_borrow release_control_lease_request_desc.
Definition release_control_lease_request_value_to_view := value_to_view release_control_lease_request_desc.
Definition release_control_lease_request_value_encoded_size := value_encoded_size release_control_lease_request_desc.
Definition release_control_lease_request_value_encode := value_encode release_control_lease_request_desc.
Definition release_control_lease_request_value_decode := value_decode release_control_lease_request_desc.

(** *** [release_control_lease_response] *)

Definition release_control_lease_response_clear := wlc_clear release_control_lease_response_desc.
Definition release_control_lease_response_encoded_size := wlc_encoded_size release_control_lease_response_desc.
Definition release_control_lease_response_encode := wlc_encode release_control_lease_response_desc.
Definition release_control_lease_response_decode := wlc_decode release_control_lease_response_desc.
Definition release_control_lease_response_wlc_detail_fingerprint := wlc_fingerprint release_control_lease_response_desc.
Definition release_control_lease_response_value_defaults := value_defaults release_control_lease_response_desc.
Definition release_control_lease_response_value_copy_fields := value_copy_fields release_control_lease_response_desc.
Definition release_control_lease_response_wlc_detail_value_copy := value_copy release_control_lease_response_desc.
Definition release_control_lease_response_value_clear := value_clear release_control_lease_response_desc.
Definition release_control_lease_response_value_from_view := value_from_view release_control_lease_response_desc.
Definition release_control_lease_response_value_borrow := value_borrow release_control_lease_response_desc.
Definition release_control_lease_response_value_to_view := value_to_view release_control_lease_response_desc.
Definition release_control_lease_response_value_encoded_size := value_encoded_size release_control_lease_response_desc.
Definition release_control_lease_response_value_encode := value_encode release_control_lease_response_desc.
Definition release_control_lease_response_value_decode := value_decode release_control_lease_response_desc.

(** *** [get_motor_feedback_request] *)

Definition get_motor_feedback_request_clear := wlc_clear get_motor_feedback_request_desc.
Definition get_motor_feedback_request_encoded_size := wlc_encoded_size get_motor_feedback_request_desc.
Definition get_motor_feedback_request_encode := wlc_encode get_motor_feedback_request_desc.
Definition get_motor_feedback_request_decode := wlc_decode get_motor_feedback_request_desc.
Definition get_motor_feedback_request_wlc_detail_fingerprint := wlc_fingerprint get_motor_feedback_request_desc.
Definition get_motor_feedback_request_value_defaults := value_defaults get_motor_feedback_request_desc.
Definition get_motor_feedback_request_value_copy_fields := value_copy_fields get_motor_feedback_request_desc.
Definition get_motor_feedback_request_wlc_detail_value_copy := value_copy get_motor_feedback_request_desc.
Definition get_motor_feedback_request_value_clear := value_clear get_motor_feedback_request_desc.
Definition get_motor_feedback_request_value_from_view := value_from_view get_motor_feedback_request_desc.
Definition get_motor_feedback_request_value_borrow := value_borrow get_motor_feedback_request_desc.
Definition get_motor_feedback_request_value_to_view := value_to_view get_motor_feedback_request_desc.
Definition get_motor_feedback_request_value_encoded_size := value_encoded_size get_motor_feedback_request_desc.
Definition get_motor_feedback_request_value_encode := value_encode get_motor_feedback_request_desc.
Definition get_motor_feedback_request_value_decode := value_decode get_motor_feedback_request_desc.

(** *** [get_motor_feedback_response] *)

Definition get_motor_feedback_response_clear := wlc_clear get_motor_feedback_response_desc.
Definition get_motor_feedback_response_encoded_size := wlc_encoded_size get_motor_feedback_response_desc.
Definition get_motor_feedback_response_encode := wlc_encode get_motor_feedback_response_desc.
Definition get_motor_feedback_response_decode := wlc_decode get_motor_feedback_response_desc.
Definition get_motor_feedback_response_wlc_detail_fingerprint := wlc_fingerprint get_motor_feedback_response_desc.
Definition get_motor_feedback_response_value_defaults := value_defaults get_motor_feedback_response_desc.
Definition get_motor_feedback_response_value_copy_fields := value_copy_fields get_motor_feedback_response_desc.
Definition get_motor_feedback_response_wlc_detail_value_copy := value_copy get_motor_feedback_response_desc.
Definition get_motor_feedback_response_value_clear := value_clear get_motor_feedback_response_desc.
Definition get_motor_feedback_response_value_from_view := value_from_view get_motor_feedback_response_desc.
Definition get_motor_feedback_response_value_borrow := value_borrow get_motor_feedback_response_desc.
Definition get_motor_feedback_response_value_to_view := value_to_view get_motor_feedback_response_desc.
Definition get_motor_feedback_response_value_encoded_size := value_encoded_size get_motor_feedback_response_desc.
Definition get_motor_feedback_response_value_encode := value_encode get_motor_feedback_response_desc.
Definition get_motor_feedback_response_value_decode := value_decode get_motor_feedback_response_desc.

(** *** [get_device_info_request] *)

Definition get_device_info_request_clear := wlc_clear get_device_info_request_desc.
Definition get_device_info_request_encoded_size := wlc_encoded_size get_device_info_request_desc.
Definition get_device_info_request_encode := wlc_encode get_device_info_request_desc.
Definition get_device_info_request_decode := wlc_decode get_device_info_request_desc.
Definition get_device_info_request_wlc_detail_fingerprint := wlc_fingerprint get_device_info_request_desc.
Definition get_device_info_request_value_defaults := value_defaults get_device_info_request_desc.
Definition get_device_info_request_value_copy_fields := value_copy_fields get_device_info_request_desc.
Definition get_device_info_request_wlc_detail_value_copy := value_copy get_device_info_request_desc.
Definition get_device_info_request_value_clear := value_clear get_device_info_request_desc.
Definition get_device_info_request_value_from_view := value_from_view get_device_info_request_desc.
Definition get_device_info_request_value_borrow := value_borrow get_device_info_request_desc.
Definition get_device_info_request_value_to_view := value_to_view get_device_info_request_desc.
Definition get_device_info_request_value_encoded_size := value_encoded_size get_device_info_request_desc.
Definition get_device_info_request_value_encode := value_encode get_device_info_request_desc.
Definition get_device_info_request_value_decode := value_decode get_device_info_request_desc.

(** *** [get_device_info_response] *)

Definition get_device_info_response_clear := wlc_clear get_device_info_response_desc.
Definition get_device_info_response_encoded_size := wlc_encoded_size get_device_info_response_desc.
Definition get_device_info_response_encode := wlc_encode get_device_info_response_desc.
Definition get_device_info_response_decode := wlc_decode get_device_info_response_desc.
Definition get_device_info_response_wlc_detail_fingerprint := wlc_fingerprint get_device_info_response_desc.
Definition get_device_info_response_value_defaults := value_defaults get_device_info_response_desc.
Definition get_device_info_response_value_copy_fields := value_copy_fields get_device_info_response_desc.
Definition get_device_info_response_wlc_detail_value_copy := value_copy get_device_info_response_desc.
Definition get_device_info_response_value_clear := value_clear get_device_info_response_desc.
Definition get_device_info_response_value_from_view := value_from_view get_device_info_response_desc.
Definition get_device_info_response_value_borrow := value_borrow get_device_info_response_desc.
Definition get_device_info_response_value_to_view := value_to_view get_device_info_response_desc.
Definition get_device_info_response_value_encoded_size := value_encoded_size get_device_info_response_desc.
Definition get_device_info_response_value_encode := value_encode get_device_info_response_desc.
Definition get_device_info_response_value_decode := value_decode get_device_info_response_desc.

(** *** [set_device_info_request] *)

Definition set_device_info_request_clear := wlc_clear set_device_info_request_desc.
Definition set_device_info_request_encoded_size := wlc_encoded_size set_device_info_request_desc.
Definition set_device_info_request_encode := wlc_encode set_device_info_request_desc.
Definition set_device_info_request_decode := wlc_decode set_device_info_request_desc.
Definition set_device_info_request_wlc_detail_fingerprint := wlc_fingerprint set_device_info_request_desc.
Definition set_device_info_request_value_defaults := value_defaults set_device_info_request_desc.
Definition set_device_info_request_value_copy_fields := value_copy_fields set_device_info_request_desc.
Definition set_device_info_request_wlc_detail_value_copy := value_copy set_device_info_request_desc.
Definition set_device_info_request_value_clear := value_clear set_device_info_request_desc.
Definition set_device_info_request_value_from_view := value_from_view set_device_info_request_desc.
Definition set_device_info_request_value_borrow := value_borrow set_device_info_request_desc.
Definition set_device_info_request_value_to_view := value_to_view set_device_info_request_desc.
Definition set_device_info_request_value_encoded_size := value_encoded_size set_device_info_request_desc.
Definition set_device_info_request_value_encode := value_encode set_device_info_request_desc.
Definition set_device_info_request_value_decode := value_decode set_device_info_request_desc.

(** *** [set_device_info_response] *)

Definition set_device_info_response_clear := wlc_clear set_device_info_response_desc.
Definition set_device_info_response_encoded_size := wlc_encoded_size set_device_info_response_desc.
Definition set_device_info_response_encode := wlc_encode set_device_info_response_desc.
Definition set_device_info_response_decode := wlc_decode set_device_info_response_desc.
Definition set_device_info_response_wlc_detail_fingerprint := wlc_fingerprint set_device_info_response_desc.
Definition set_device_info_response_value_defaults := value_defaults set_device_info_response_desc.
Definition set_device_info_response_value_copy_fields := value_copy_fields set_device_info_response_desc.
Definition set_device_info_response_wlc_detail_value_copy := value_copy set_device_info_response_desc.
Definition set_device_info_response_value_clear := value_clear set_device_info_response_desc.
Definition set_device_info_response_value_from_view := value_from_view set_device_info_response_desc.
Definition set_device_info_response_value_borrow := value_borrow set_device_info_response_desc.
Definition set_device_info_response_value_to_view := value_to_view set_device_info_response_desc.
Definition set_device_info_response_value_encoded_size := value_encoded_size set_device_info_response_desc.
Definition set_device_info_response_value_encode := value_encode set_device_info_response_desc.
Definition set_device_info_response_value_decode := value_decode set_device_info_response_desc.

(** *** [set_arm_control_mode_request] *)

Definition set_arm_control_mode_request_clear := wlc_clear set_arm_control_mode_request_desc.
Definition set_arm_control_mode_request_encoded_size := wlc_encoded_size set_arm_control_mode_request_desc.
Definition set_arm_control_mode_request_encode := wlc_encode set_arm_control_mode_request_desc.
Definition set_arm_control_mode_request_decode := wlc_decode set_arm_control_mode_request_desc.
Definition set_arm_control_mode_request_wlc_detail_fingerprint := wlc_fingerprint set_arm_control_mode_request_desc.
Definition set_arm_control_mode_request_value_defaults := value_defaults set_arm_control_mode_request_desc.
Definition set_arm_control_mode_request_value_copy_fields := value_copy_fields set_arm_control_mode_request_desc.
Definition set_arm_control_mode_request_wlc_detail_value_copy := value_copy set_arm_control_mode_request_desc.
Definition set_arm_control_mode_request_value_clear := value_clear set_arm_control_mode_request_desc.
Definition set_arm_control_mode_request_value_from_view := value_from_view set_arm_control_mode_request_desc.
Definition set_arm_control_mode_request_value_borrow := value_borrow set_arm_control_mode_request_desc.
Definition set_arm_control_mode_request_value_to_view := value_to_view set_arm_control_mode_request_desc.
Definition set_arm_control_mode_request_value_encoded_size := value_encoded_size set_arm_control_mode_request_desc.
Definition set_arm_control_mode_request_value_encode := value_encode set_arm_control_mode_request_desc.
Definition set_arm_control_mode_request_value_decode := value_decode set_arm_control_mode_request_desc.

(** *** [set_arm_control_mode_response] *)

Definition set_arm_control_mode_response_clear := wlc_clear set_arm_control_mode_response_desc.
Definition set_arm_control_mode_response_encoded_size := wlc_encoded_size set_arm_control_mode_response_desc.
Definition set_arm_control_mode_response_encode := wlc_encode set_arm_control_mode_response_desc.
Definition set_arm_control_mode_response_decode := wlc_decode set_arm_control_mode_response_desc.
Definition set_arm_control_mode_response_wlc_detail_fingerprint := wlc_fingerprint set_arm_control_mode_response_desc.
Definition set_arm_control_mode_response_value_defaults := value_defaults set_arm_control_mode_response_desc.
Definition set_arm_control_mode_response_value_copy_fields := value_copy_fields set_arm_control_mode_response_desc.
Definition set_arm_control_mode_response_wlc_detail_value_copy := value_copy set_arm_control_mode_response_desc.
Definition set_arm_control_mode_response_value_clear := value_clear set_arm_control_mode_response_desc.
Definition set_arm_control_mode_response_value_from_view := value_from_view set_arm_control_mode_response_desc.
Definition set_arm_control_mode_response_value_borrow := value_borrow set_arm_control_mode_response_desc.
Definition set_arm_control_mode_response_value_to_view := value_to_view set_arm_control_mode_response_desc.
Definition set_arm_control_mode_response_value_encoded_size := value_encoded_size set_arm_control_mode_response_desc.
Definition set_arm_control_mode_response_value_encode := value_encode set_arm_control_mode_response_desc.
Definition set_arm_control_mode_response_value_decode := value_decode set_arm_control_mode_response_desc.

(** *** [set_gripper_control_mode_request] *)

Definition set_gripper_control_mode_request_clear := wlc_clear set_gripper_control_mode_request_desc.
Definition set_gripper_control_mode_request_encoded_size := wlc_encoded_size set_gripper_control_mode_request_desc.
Definition set_gripper_control_mode_request_encode := wlc_encode set_gripper_control_mode_request_desc.
Definition set_gripper_control_mode_request_decode := wlc_decode set_gripper_control_mode_request_desc.
Definition set_gripper_control_mode_request_wlc_detail_fingerprint := wlc_fingerprint set_gripper_control_mode_request_desc.
Definition set_gripper_control_mode_request_value_defaults := value_defaults set_gripper_control_mode_request_desc.
Definition set_gripper_control_mode_request_value_copy_fields := value_copy_fields set_gripper_control_mode_request_desc.
Definition set_gripper_control_mode_request_wlc_detail_value_copy := value_copy set_gripper_control_mode_request_desc.
Definition set_gripper_control_mode_request_value_clear := value_clear set_gripper_control_mode_request_desc.
Definition set_gripper_control_mode_request_value_from_view := value_from_view set_gripper_control_mode_request_desc.
Definition set_gripper_control_mode_request_value_borrow := value_borrow set_gripper_control_mode_request_desc.
Definition set_gripper_control_mode_request_value_to_view := value_to_view set_gripper_control_mode_request_desc.
Definition set_gripper_control_mode_request_value_encoded_size := value_encoded_size set_gripper_control_mode_request_desc.
Definition set_gripper_control_mode_request_value_encode := value_encode set_gripper_control_mode_request_desc.
Definition set_gripper_control_mode_request_value_decode := value_decode set_gripper_control_mode_request_desc.

(** *** [set_gripper_control_mode_response] *)

Definition set_gripper_control_mode_response_clear := wlc_clear set_gripper_control_mode_response_desc.
Definition set_gripper_control_mode_response_encoded_size := wlc_encoded_size set_gripper_control_mode_response_desc.
Definition set_gripper_control_mode_response_encode := wlc_encode set_gripper_control_mode_response_desc.
Definition set_gripper_control_mode_response_decode := wlc_decode set_gripper_control_mode_response_desc.
Definition set_gripper_control_mode_response_wlc_detail_fingerprint := wlc_fingerprint set_gripper_control_mode_response_desc.
Definition set_gripper_control_mode_response_value_defaults := value_defaults set_gripper_control_mode_response_desc.
Definition set_gripper_control_mode_response_value_copy_fields := value_copy_fields set_gripper_control_mode_response_desc.
Definition set_gripper_control_mode_response_wlc_detail_value_copy := value_copy set_gripper_control_mode_response_desc.
Definition set_gripper_control_mode_response_value_clear := value_clear set_gripper_control_mode_response_desc.
Definition set_gripper_control_mode_response_value_from_view := value_from_view set_gripper_control_mode_response_desc.
Definition set_gripper_control_mode_response_value_borrow := value_borrow set_gripper_control_mode_response_desc.
Definition set_gripper_control_mode_response_value_to_view := value_to_view set_gripper_control_mode_response_desc.
Definition set_gripper_control_mode_response_value_encoded_size := value_encoded_size set_gripper_control_mode_response_desc.
Definition set_gripper_control_mode_response_value_encode := value_encode set_gripper_control_mode_response_desc.
Definition set_gripper_control_mode_response_value_decode := value_decode set_gripper_control_mode_response_desc.

(** *** [motor_register_read_request] *)

Definition motor_register_read_request_clear := wlc_clear motor_register_read_request_desc.
Definition motor_register_read_request_encoded_size := wlc_encoded_size motor_register_read_request_desc.
Definition motor_register_read_request_encode := wlc_encode motor_register_read_request_desc.
Definition motor_register_read_request_decode := wlc_decode motor_register_read_request_desc.
Definition motor_register_read_request_wlc_detail_fingerprint := wlc_fingerprint motor_register_read_request_desc.
Definition motor_register_read_request_value_defaults := value_defaults motor_register_read_request_desc.
Definition motor_register_read_request_value_copy_fields := value_copy_fields motor_register_read_request_desc.
Definition motor_register_read_request_wlc_detail_value_copy := value_copy motor_register_read_request_desc.
Definition motor_register_read_request_value_clear := value_clear motor_register_read_request_desc.
Definition motor_register_read_request_value_from_view := value_from_view motor_register_read_request_desc.
Definition motor_register_read_request_value_borrow := value_borrow motor_register_read_request_desc.
Definition motor_register_read_request_value_to_view := value_to_view motor_register_read_request_desc.
Definition motor_register_read_request_value_encoded_size := value_encoded_size motor_register_read_request_desc.
Definition motor_register_read_request_value_encode := value_encode motor_register_read_request_desc.
Definition motor_register_read_request_value_decode := value_decode motor_register_read_request_desc.

(** *** [motor_register_read_response] *)

Definition motor_register_read_response_clear := wlc_clear motor_register_read_response_desc.
Definition motor_register_read_response_encoded_size := wlc_encoded_size motor_register_read_response_desc.
Definition motor_register_read_response_encode := wlc_encode motor_register_read_response_desc.
Definition motor_register_read_response_decode := wlc_decode motor_register_read_response_desc.
Definition motor_register_read_response_wlc_detail_fingerprint := wlc_fingerprint motor_register_read_response_desc.
Definition motor_register_read_response_value_defaults := value_defaults motor_register_read_response_desc.
Definition motor_register_read_response_value_copy_fields := value_copy_fields motor_register_read_response_desc.
Definition motor_register_read_response_wlc_detail_value_copy := value_copy motor_register_read_response_desc.
Definition motor_register_read_response_value_clear := value_clear motor_register_read_response_desc.
Definition motor_register_read_response_value_from_view := value_from_view motor_register_read_response_desc.
Definition motor_register_read_response_value_borrow := value_borrow motor_register_read_response_desc.
Definition motor_register_read_response_value_to_view := value_to_view motor_register_read_response_desc.
Definition motor_register_read_response_value_encoded_size := value_encoded_size motor_register_read_response_desc.
Definition motor_register_read_response_value_encode := value_encode motor_register_read_response_desc.
Definition motor_register_read_response_value_decode := value_decode motor_register_read_response_desc.

(** *** [motor_register_write_request] *)

Definition motor_register_write_request_clear := wlc_clear motor_register_write_request_desc.
Definition motor_register_write_request_encoded_size := wlc_encoded_size motor_register_write_request_desc.
Definition motor_register_write_request_encode := wlc_encode motor_register_write_request_desc.
Definition motor_register_write_request_decode := wlc_decode motor_register_write_request_desc.
Definition motor_register_write_request_wlc_detail_fingerprint := wlc_fingerprint motor_register_write_request_desc.
Definition motor_register_write_request_value_defaults := value_defaults motor_register_write_request_desc.
Definition motor_register_write_request_value_copy_fields := value_copy_fields motor_register_write_request_desc.
Definition motor_register_write_request_wlc_detail_value_copy := value_copy motor_register_write_request_desc.
Definition motor_register_write_request_value_clear := value_clear motor_register_write_request_desc.
Definition motor_register_write_request_value_from_view := value_from_view motor_register_write_request_desc.
Definition motor_register_write_request_value_borrow := value_borrow motor_register_write_request_desc.
Definition motor_register_write_request_value_to_view := value_to_view motor_register_write_request_desc.
Definition motor_register_write_request_value_encoded_size := value_encoded_size motor_register_write_request_desc.
Definition motor_register_write_request_value_encode := value_encode motor_register_write_request_desc.
Definition motor_register_write_request_value_decode := value_decode motor_register_write_request_desc.

(** *** [motor_register_write_response] *)

Definition motor_register_write_response_clear := wlc_clear motor_register_write_response_desc.
Definition motor_register_write_response_encoded_size := wlc_encoded_size motor_register_write_response_desc.
Definition motor_register_write_response_encode := wlc_encode motor_register_write_response_desc.
Definition motor_register_write_response_decode := wlc_decode motor_register_write_response_desc.
Definition motor_register_write_response_wlc_detail_fingerprint := wlc_fingerprint motor_register_write_response_desc.
Definition motor_register_write_response_value_defaults := value_defaults motor_register_write_response_desc.
Definition motor_register_write_response_value_copy_fields := value_copy_fields motor_register_write_response_desc.
Definition motor_register_write_response_wlc_detail_value_copy := value_copy motor_register_write_response_desc.
Definition motor_register_write_response_value_clear := value_clear motor_register_write_response_desc.
Definition motor_register_write_response_value_from_view := value_from_view motor_register_write_response_desc.
Definition motor_register_write_response_value_borrow := value_borrow motor_register_write_response_desc.
Definition motor_register_write_response_value_to_view := value_to_view motor_register_write_response_desc.
Definition motor_register_write_response_value_encoded_size := value_encoded_size motor_register_write_response_desc.
Definition motor_register_write_response_value_encode := value_encode motor_register_write_response_desc.
Definition motor_register_write_response_value_decode := value_decode motor_register_write_response_desc.

(** *** [motor_store_parameters_request] *)

Definition motor_store_parameters_request_clear := wlc_clear motor_store_parameters_request_desc.
Definition motor_store_parameters_request_encoded_size := wlc_encoded_size motor_store_parameters_request_desc.
Definition motor_store_parameters_request_encode := wlc_encode motor_store_parameters_request_desc.
Definition motor_store_parameters_request_decode := wlc_decode motor_store_parameters_request_desc.
Definition motor_store_parameters_request_wlc_detail_fingerprint := wlc_fingerprint motor_store_parameters_request_desc.
Definition motor_store_parameters_request_value_defaults := value_defaults motor_store_parameters_request_desc.
Definition motor_store_parameters_request_value_copy_fields := value_copy_fields motor_store_parameters_request_desc.
Definition motor_store_parameters_request_wlc_detail_value_copy := value_copy motor_store_parameters_request_desc.
Definition motor_store_parameters_request_value_clear := value_clear motor_store_parameters_request_desc.
Definition motor_store_parameters_request_value_from_view := value_from_view motor_store_parameters_request_desc.
Definition motor_store_parameters_request_value_borrow := value_borrow motor_store_parameters_request_desc.
Definition motor_store_parameters_request_value_to_view := value_to_view motor_store_parameters_request_desc.
Definition motor_store_parameters_request_value_encoded_size := value_encoded_size motor_store_parameters_request_desc.
Definition motor_store_parameters_request_value_encode := value_encode motor_store_parameters_request_desc.
Definition motor_store_parameters_request_value_decode := value_decode motor_store_parameters_request_desc.

(** *** [motor_store_parameters_response] *)

Definition motor_store_parameters_response_clear := wlc_clear motor_store_parameters_response_desc.
Definition motor_store_parameters_response_encoded_size := wlc_encoded_size motor_store_parameters_response_desc.
Definition motor_store_parameters_response_encode := wlc_encode motor_store_parameters_response_desc.
Definition motor_store_parameters_response_decode := wlc_decode motor_store_parameters_response_desc.
Definition motor_store_parameters_response_wlc_detail_fingerprint := wlc_fingerprint motor_store_parameters_response_desc.
Definition motor_store_parameters_response_value_defaults := value_defaults motor_store_parameters_response_desc.
Definition motor_store_parameters_response_value_copy_fields := value_copy_fields motor_store_parameters_response_desc.
Definition motor_store_parameters_response_wlc_detail_value_copy := value_copy motor_store_parameters_response_desc.
Definition motor_store_parameters_response_value_clear := value_clear motor_store_parameters_response_desc.
Definition motor_store_parameters_response_value_from_view := value_from_view motor_store_parameters_response_desc.
Definition motor_store_parameters_response_value_borrow := value_borrow motor_store_parameters_response_desc.
Definition motor_store_parameters_response_value_to_view := value_to_view motor_store_parameters_response_desc.
Definition motor_store_parameters_response_value_encoded_size := value_encoded_size motor_store_parameters_response_desc.
Definition motor_store_parameters_response_value_encode := value_encode motor_store_parameters_response_desc.
Definition motor_store_parameters_response_value_decode := value_decode motor_store_parameters_response_desc.

(** *** [motor_set_zero_request] *)

Definition motor_set_zero_request_clear := wlc_clear motor_set_zero_request_desc.
Definition motor_set_zero_request_encoded_size := wlc_encoded_size motor_set_zero_request_desc.
Definition motor_set_zero_request_encode := wlc_encode motor_set_zero_request_desc.
Definition motor_set_zero_request_decode := wlc_decode motor_set_zero_request_desc.
Definition motor_set_zero_request_wlc_detail_fingerprint := wlc_fingerprint motor_set_zero_request_desc.
Definition motor_set_zero_request_value_defaults := value_defaults motor_set_zero_request_desc.
Definition motor_set_zero_request_value_copy_fields := value_copy_fields motor_set_zero_request_desc.
Definition motor_set_zero_request_wlc_detail_value_copy := value_copy motor_set_zero_request_desc.
Definition motor_set_zero_request_value_clear := value_clear motor_set_zero_request_desc.
Definition motor_set_zero_request_value_from_view := value_from_view motor_set_zero_request_desc.
Definition motor_set_zero_request_value_borrow := value_borrow motor_set_zero_request_desc.
Definition motor_set_zero_request_value_to_view := value_to_view motor_set_zero_request_desc.
Definition motor_set_zero_request_value_encoded_size := value_encoded_size motor_set_zero_request_desc.
Definition motor_set_zero_request_value_encode := value_encode motor_set_zero_request_desc.
Definition motor_set_zero_request_value_decode := value_decode motor_set_zero_request_desc.

(** *** [motor_set_zero_response] *)

Definition motor_set_zero_response_clear := wlc_clear motor_set_zero_response_desc.
Definition motor_set_zero_response_encoded_size := wlc_encoded_size motor_set_zero_response_desc.
Definition motor_set_zero_response_encode := wlc_encode motor_set_zero_response_desc.
Definition motor_set_zero_response_decode := wlc_decode motor_set_zero_response_desc.
Definition motor_set_zero_response_wlc_detail_fingerprint := wlc_fingerprint motor_set_zero_response_desc.
Definition motor_set_zero_response_value_defaults := value_defaults motor_set_zero_response_desc.
Definition motor_set_zero_response_value_copy_fields := value_copy_fields motor_set_zero_response_desc.
Definition motor_set_zero_response_wlc_detail_value_copy := value_copy motor_set_zero_response_desc.
Definition motor_set_zero_response_value_clear := value_clear motor_set_zero_response_desc.
Definition motor_set_zero_response_value_from_view := value_from_view motor_set_zero_response_desc.
Definition motor_set_zero_response_value_borrow := value_borrow motor_set_zero_response_desc.
Definition motor_set_zero_response_value_to_view := value_to_view motor_set_zero_response_desc.
Definition motor_set_zero_response_value_encoded_size := value_encoded_size motor_set_zero_response_desc.
Definition motor_set_zero_response_value_encode := value_encode motor_set_zero_response_desc.
Definition motor_set_zero_response_value_decode := value_decode motor_set_zero_response_desc.

(** *** [set_arm_mode_request] *)

Definition set_arm_mode_request_clear := wlc_clear set_arm_mode_request_desc.
Definition set_arm_mode_request_encoded_size := wlc_encoded_size set_arm_mode_request_desc.
Definition set_arm_mode_request_encode := wlc_encode set_arm_mode_request_desc.
Definition set_arm_mode_request_decode := wlc_decode set_arm_mode_request_desc.
Definition set_arm_mode_request_wlc_detail_fingerprint := wlc_fingerprint set_arm_mode_request_desc.
Definition set_arm_mode_request_value_defaults := value_defaults set_arm_mode_request_desc.
Definition set_arm_mode_request_value_copy_fields := value_copy_fields set_arm_mode_request_desc.
Definition set_arm_mode_request_wlc_detail_value_copy := value_copy set_arm_mode_request_desc.
Definition set_arm_mode_request_value_clear := value_clear set_arm_mode_request_desc.
Definition set_arm_mode_request_value_from_view := value_from_view set_arm_mode_request_desc.
Definition set_arm_mode_request_value_borrow := value_borrow set_arm_mode_request_desc.
Definition set_arm_mode_request_value_to_view := value_to_view set_arm_mode_request_desc.
Definition set_arm_mode_request_value_encoded_size := value_encoded_size set_arm_mode_request_desc.
Definition set_arm_mode_request_value_encode := value_encode set_arm_mode_request_desc.
Definition set_arm_mode_request_value_decode := value_decode set_arm_mode_request_desc.

(** *** [set_arm_mode_response] *)

Definition set_arm_mode_response_clear := wlc_clear set_arm_mode_response_desc.
Definition set_arm_mode_response_encoded_size := wlc_encoded_size set_arm_mode_response_desc.
Definition set_arm_mode_response_encode := wlc_encode set_arm_mode_response_desc.
Definition set_arm_mode_response_decode := wlc_decode set_arm_mode_response_desc.
Definition set_arm_mode_response_wlc_detail_fingerprint := wlc_fingerprint set_arm_mode_response_desc.
Definition set_arm_mode_response_value_defaults := value_defaults set_arm_mode_response_desc.
Definition set_arm_mode_response_value_copy_fields := value_copy_fields set_arm_mode_response_desc.
Definition set_arm_mode_response_wlc_detail_value_copy := value_copy set_arm_mode_response_desc.
Definition set_arm_mode_response_value_clear := value_clear set_arm_mode_response_desc.
Definition set_arm_mode_response_value_from_view := value_from_view set_arm_mode_response_desc.
Definition set_arm_mode_response_value_borrow := value_borrow set_arm_mode_response_desc.
Definition set_arm_mode_response_value_to_view := value_to_view set_arm_mode_response_desc.
Definition set_arm_mode_response_value_encoded_size := value_encoded_size set_arm_mode_response_desc.
Definition set_arm_mode_response_value_encode := value_encode set_arm_mode_response_desc.
Definition set_arm_mode_response_value_decode := value_decode set_arm_mode_response_desc.

(** *** [get_device_settings_request] *)

Definition get_device_settings_request_clear := wlc_clear get_device_settings_request_desc.
Definition get_device_settings_request_encoded_size := wlc_encoded_size get_device_settings_request_desc.
Definition get_device_settings_request_encode := wlc_encode get_device_settings_request_desc.
Definition get_device_settings_request_decode := wlc_decode get_device_settings_request_desc.
Definition get_device_settings_request_wlc_detail_fingerprint := wlc_fingerprint get_device_settings_request_desc.
Definition get_device_settings_request_value_defaults := value_defaults get_device_settings_request_desc.
Definition get_device_settings_request_value_copy_fields := value_copy_fields get_device_settings_request_desc.
Definition get_device_settings_request_wlc_detail_value_copy := value_copy get_device_settings_request_desc.
Definition get_device_settings_request_value_clear := value_clear get_device_settings_request_desc.
Definition get_device_settings_request_value_from_view := value_from_view get_device_settings_request_desc.
Definition get_device_settings_request_value_borrow := value_borrow get_device_settings_request_desc.
Definition get_device_settings_request_value_to_view := value_to_view get_device_settings_request_desc.
Definition get_device_settings_request_value_encoded_size := value_encoded_size get_device_settings_request_desc.
Definition get_device_settings_request_value_encode := value_encode get_device_settings_request_desc.
Definition get_device_settings_request_value_decode := value_decode get_device_settings_request_desc.

(** *** [get_device_settings_response] *)

Definition get_device_settings_response_clear := wlc_clear get_device_settings_response_desc.
Definition get_device_settings_response_encoded_size := wlc_encoded_size get_device_settings_response_desc.
Definition get_device_settings_response_encode := wlc_encode get_device_settings_response_desc.
Definition get_device_settings_response_decode := wlc_decode get_device_settings_response_desc.
Definition get_device_settings_response_wlc_detail_fingerprint := wlc_fingerprint get_device_settings_response_desc.
Definition get_device_settings_response_value_defaults := value_defaults get_device_settings_response_desc.
Definition get_device_settings_response_value_copy_fields := value_copy_fields get_device_settings_response_desc.
Definition get_device_settings_response_wlc_detail_value_copy := value_copy get_device_settings_response_desc.
Definition get_device_settings_response_value_clear := value_clear get_device_settings_response_desc.
Definition get_device_settings_response_value_from_view := value_from_view get_device_settings_response_desc.
Definition get_device_settings_response_value_borrow := value_borrow get_device_settings_response_desc.
Definition get_device_settings_response_value_to_view := value_to_view get_device_settings_response_desc.
Definition get_device_settings_response_value_encoded_size := value_encoded_size get_device_settings_response_desc.
Definition get_device_settings_response_value_encode := value_encode get_device_settings_response_desc.
Definition get_device_settings_response_value_decode := value_decode get_device_settings_response_desc.

(** *** [set_device_settings_request] *)

Definition set_device_settings_request_clear := wlc_clear set_device_settings_request_desc.
Definition set_device_settings_request_encoded_size := wlc_encoded_size set_device_settings_request_desc.
Definition set_device_settings_request_encode := wlc_encode set_device_settings_request_desc.
Definition set_device_settings_request_decode := wlc_decode set_device_settings_request_desc.
Definition set_device_settings_request_wlc_detail_fingerprint := wlc_fingerprint set_device_settings_request_desc.
Definition set_device_settings_request_value_defaults := value_defaults set_device_settings_request_desc.
Definition set_device_settings_request_value_copy_fields := value_copy_fields set_device_settings_request_desc.
Definition set_device_settings_request_wlc_detail_value_copy := value_copy set_device_settings_request_desc.
Definition set_device_settings_request_value_clear := value_clear set_device_settings_request_desc.
Definition set_device_settings_request_value_from_view := value_from_view set_device_settings_request_desc.
Definition set_device_settings_request_value_borrow := value_borrow set_device_settings_request_desc.
Definition set_device_settings_request_value_to_view := value_to_view set_device_settings_request_desc.
Definition set_device_settings_request_value_encoded_size := value_encoded_size set_device_settings_request_desc.
Definition set_device_settings_request_value_encode := value_encode set_device_settings_request_desc.
Definition set_device_settings_request_value_decode := value_decode set_device_settings_request_desc.

(** *** [set_device_settings_response] *)

Definition set_device_settings_response_clear := wlc_clear set_device_settings_response_desc.
Definition set_device_settings_response_encoded_size := wlc_encoded_size set_device_settings_response_desc.
Definition set_device_settings_response_encode := wlc_encode set_device_settings_response_desc.
Definition set_device_settings_response_decode := wlc_decode set_device_settings_response_desc.
Definition set_device_settings_response_wlc_detail_fingerprint := wlc_fingerprint set_device_settings_response_desc.
Definition set_device_settings_response_value_defaults := value_defaults set_device_settings_response_desc.
Definition set_device_settings_response_value_copy_fields := value_copy_fields set_device_settings_response_desc.
Definition set_device_settings_response_wlc_detail_value_copy := value_copy set_device_settings_response_desc.
Definition set_device_settings_response_value_clear := value_clear set_device_settings_response_desc.
Definition set_device_settings_response_value_from_view := value_from_view set_device_settings_response_desc.
Definition set_device_settings_response_value_borrow := value_borrow set_device_settings_response_desc.
Definition set_device_settings_response_value_to_view := value_to_view set_device_settings_response_desc.
Definition set_device_settings_response_value_encoded_size := value_encoded_size set_device_settings_response_desc.
Definition set_device_settings_response_value_encode := value_encode set_device_settings_response_desc.
Definition set_device_settings_response_value_decode := value_decode set_device_settings_response_desc.

(** *** [joint_mit_command] *)

Definition joint_mit_command_clear := wlc_clear joint_mit_command_desc.
Definition joint_mit_command_encoded_size := wlc_encoded_size joint_mit_command_desc.
Definition joint_mit_command_encode := wlc_encode joint_mit_command_desc.
Definition joint_mit_command_decode := wlc_decode joint_mit_command_desc.
Definition joint_mit_command_wlc_detail_fingerprint := wlc_fingerprint joint_mit_command_desc.
Definition joint_mit_command_value_defaults := value_defaults joint_mit_command_desc.
Definition joint_mit_command_value_copy_fields := value_copy_fields joint_mit_command_desc.
Definition joint_mit_command_wlc_detail_value_copy := value_copy joint_mit_command_desc.
Definition joint_mit_command_value_clear := value_clear joint_mit_command_desc.
Definition joint_mit_command_value_from_view := value_from_view joint_mit_command_desc.
Definition joint_mit_command_value_borrow := value_borrow joint_mit_command_desc.
Definition joint_mit_command_value_to_view := value_to_view joint_mit_command_desc.
Definition joint_mit_command_value_encoded_size := value_encoded_size joint_mit_command_desc.
Definition joint_mit_command_value_encode := value_encode joint_mit_command_desc.
Definition joint_mit_command_value_decode := value_decode joint_mit_command_desc.

(** *** [emergency_stop_request] *)

Definition emergency_stop_request_clear := wlc_clear emergency_stop_request_desc.
Definition emergency_stop_request_encoded_size := wlc_encoded_size emergency_stop_request_desc.
Definition emergency_stop_request_encode := wlc_encode emergency_stop_request_desc.
Definition emergency_stop_request_decode := wlc_decode emergency_stop_request_desc.
Definition emergency_stop_request_wlc_detail_fingerprint := wlc_fingerprint emergency_stop_request_desc.
Definition emergency_stop_request_value_defaults := value_defaults emergency_stop_request_desc.
Definition emergency_stop_request_value_copy_fields := value_copy_fields emergency_stop_request_desc.
Definition emergency_stop_request_wlc_detail_value_copy := value_copy emergency_stop_request_desc.
Definition emergency_stop_request_value_clear := value_clear emergency_stop_request_desc.
Definition emergency_stop_request_value_from_view := value_from_view emergency_stop_request_desc.
Definition emergency_stop_request_value_borrow := value_borrow emergency_stop_request_desc.
Definition emergency_stop_request_value_to_view := value_to_view emergency_stop_request_desc.
Definition emergency_stop_request_value_encoded_size := value_encoded_size emergency_stop_request_desc.
Definition emergency_stop_request_value_encode := value_encode emergency_stop_request_desc.
Definition emergency_stop_request_value_decode := value_decode emergency_stop_request_desc.

(** *** [emergency_stop_response] *)

Definition emergency_stop_response_clear := wlc_clear emergency_stop_response_desc.
Definition emergency_stop_response_encoded_size := wlc_encoded_size emergency_stop_response_desc.
Definition emergency_stop_response_encode := wlc_encode emergency_stop_response_desc.
Definition emergency_stop_response_decode := wlc_decode emergency_stop_response_desc.
Definition emergency_stop_response_wlc_detail_fingerprint := wlc_fingerprint emergency_stop_response_desc.
Definition emergency_stop_response_value_defaults := value_defaults emergency_stop_response_desc.
Definition emergency_stop_response_value_copy_fields := value_copy_fields emergency_stop_response_desc.
Definition emergency_stop_response_wlc_detail_value_copy := value_copy emergency_stop_response_desc.
Definition emergency_stop_response_value_clear := value_clear emergency_stop_response_desc.
Definition emergency_stop_response_value_from_view := value_from_view emergency_stop_response_desc.
Definition emergency_stop_response_value_borrow := value_borrow emergency_stop_response_desc.
Definition emergency_stop_response_value_to_view := value_to_view emergency_stop_response_desc.
Definition emergency_stop_response_value_encoded_size := value_encoded_size emergency_stop_response_desc.
Definition emergency_stop_response_value_encode := value_encode emergency_stop_response_desc.
Definition emergency_stop_response_value_decode := value_decode emergency_stop_response_desc.

(** *** [gripper_mit_command] *)

Definition gripper_mit_command_clear := wlc_clear gripper_mit_command_desc.
Definition gripper_mit_command_encoded_size := wlc_encoded_size gripper_mit_command_desc.
Definition gripper_mit_command_encode := wlc_encode gripper_mit_command_desc.
Definition gripper_mit_command_decode := wlc_decode gripper_mit_command_desc.
Definition gripper_mit_command_wlc_detail_fingerprint := wlc_fingerprint gripper_mit_command_desc.
Definition gripper_mit_command_value_defaults := value_defaults gripper_mit_command_desc.
Definition gripper_mit_command_value_copy_fields := value_copy_fields gripper_mit_command_desc.
Definition gripper_mit_command_wlc_detail_value_copy := value_copy gripper_mit_command_desc.
Definition gripper_mit_command_value_clear := value_clear gripper_mit_command_desc.
Definition gripper_mit_command_value_from_view := value_from_view gripper_mit_command_desc.
Definition gripper_mit_command_value_borrow := value_borrow gripper_mit_command_desc.
Definition gripper_mit_command_value_to_view := value_to_view gripper_mit_command_desc.
Definition gripper_mit_command_value_encoded_size := value_encoded_size gripper_mit_command_desc.
Definition gripper_mit_command_value_encode := value_encode gripper_mit_command_desc.
Definition gripper_mit_command_value_decode := value_decode gripper_mit_command_desc.

(** *** [joint_position_velocity_command] *)

Definition joint_position_velocity_command_clear := wlc_clear joint_position_velocity_command_desc.
Definition joint_position_velocity_command_encoded_size := wlc_encoded_size joint_position_velocity_command_desc.
Definition joint_position_velocity_command_encode := wlc_encode joint_position_velocity_command_desc.
Definition joint_position_velocity_command_decode := wlc_decode joint_position_velocity_command_desc.
Definition joint_position_velocity_command_wlc_detail_fingerprint := wlc_fingerprint joint_position_velocity_command_desc.
Definition joint_position_velocity_command_value_defaults := value_defaults joint_position_velocity_command_desc.
Definition joint_position_velocity_command_value_copy_fields := value_copy_fields joint_position_velocity_command_desc.
Definition joint_position_velocity_command_wlc_detail_value_copy := value_copy joint_position_velocity_command_desc.
Definition joint_position_velocity_command_value_clear := value_clear joint_position_velocity_command_desc.
Definition joint_position_velocity_command_value_from_view := value_from_view joint_position_velocity_command_desc.
Definition joint_position_velocity_command_value_borrow := value_borrow joint_position_velocity_command_desc.
Definition joint_position_velocity_command_value_to_view := value_to_view joint_position_velocity_command_desc.
Definition joint_position_velocity_command_value_encoded_size := value_encoded_size joint_position_velocity_command_desc.
Definition joint_position_velocity_command_value_encode := value_encode joint_position_velocity_command_desc.
Definition joint_position_velocity_command_value_decode := value_decode joint_position_velocity_command_desc.

(** *** [joint_velocity_command] *)

Definition joint_velocity_command_clear := wlc_clear joint_velocity_command_desc.
Definition joint_velocity_command_encoded_size := wlc_encoded_size joint_velocity_command_desc.
Definition joint_velocity_command_encode := wlc_encode joint_velocity_command_desc.
Definition joint_velocity_command_decode := wlc_decode joint_velocity_command_desc.
Definition joint_velocity_command_wlc_detail_fingerprint := wlc_fingerprint joint_velocity_command_desc.
Definition joint_velocity_command_value_defaults := value_defaults joint_velocity_command_desc.
Definition joint_velocity_command_value_copy_fields := value_copy_fields joint_velocity_command_desc.
Definition joint_velocity_command_wlc_detail_value_copy := value_copy joint_velocity_command_desc.
Definition joint_velocity_command_value_clear := value_clear joint_velocity_command_desc.
Definition joint_velocity_command_value_from_view := value_from_view joint_velocity_command_desc.
Definition joint_velocity_command_value_borrow := value_borrow joint_velocity_command_desc.
Definition joint_velocity_command_value_to_view := value_to_view joint_velocity_command_desc.
Definition joint_velocity_command_value_encoded_size := value_encoded_size joint_velocity_command_desc.
Definition joint_velocity_command_value_encode := value_encode joint_velocity_command_desc.
Definition joint_velocity_command_value_decode := value_decode joint_velocity_command_desc.

(** *** [joint_pvt_command] *)

Definition joint_pvt_command_clear := wlc_clear joint_pvt_command_desc.
Definition joint_pvt_command_encoded_size := wlc_encoded_size joint_pvt_command_desc.
Definition joint_pvt_command_encode := wlc_encode joint_pvt_command_desc.
Definition joint_pvt_command_decode := wlc_decode joint_pvt_command_desc.
Definition joint_pvt_command_wlc_detail_fingerprint := wlc_fingerprint joint_pvt_command_desc.
Definition joint_pvt_command_value_defaults := value_defaults joint_pvt_command_desc.
Definition joint_pvt_command_value_copy_fields := value_copy_fields joint_pvt_command_desc.
Definition joint_pvt_command_wlc_detail_value_copy := value_copy joint_pvt_command_desc.
Definition joint_pvt_command_value_clear := value_clear joint_pvt_command_desc.
Definition joint_pvt_command_value_from_view := value_from_view joint_pvt_command_desc.
Definition joint_pvt_command_value_borrow := value_borrow joint_pvt_command_desc.
Definition joint_pvt_command_value_to_view := value_to_view joint_pvt_command_desc.
Definition joint_pvt_command_value_encoded_size := value_encoded_size joint_pvt_command_desc.
Definition joint_pvt_command_value_encode := value_encode joint_pvt_command_desc.
Definition joint_pvt_command_value_decode := value_decode joint_pvt_command_desc.

(** *** [cartesian_pose_command] *)

Definition cartesian_pose_command_clear := wlc_clear cartesian_pose_command_desc.
Definition cartesian_pose_command_encoded_size := wlc_encoded_size cartesian_pose_command_desc.
Definition cartesian_pose_command_encode := wlc_encode cartesian_pose_command_desc.
Definition cartesian_pose_command_decode := wlc_decode cartesian_pose_command_desc.
Definition cartesian_pose_command_wlc_detail_fingerprint := wlc_fingerprint cartesian_pose_command_desc.
Definition cartesian_pose_command_value_defaults := value_defaults cartesian_pose_command_desc.
Definition cartesian_pose_command_value_copy_fields := value_copy_fields cartesian_pose_command_desc.
Definition cartesian_pose_command_wlc_detail_value_copy := value_copy cartesian_pose_command_desc.
Definition cartesian_pose_command_value_clear := value_clear cartesian_pose_command_desc.
Definition cartesian_pose_command_value_from_view := value_from_view cartesian_pose_command_desc.
Definition cartesian_pose_command_value_borrow := value_borrow cartesian_pose_command_desc.
Definition cartesian_pose_command_value_to_view := value_to_view cartesian_pose_command_desc.
Definition cartesian_pose_command_value_encoded_size := value_encoded_size cartesian_pose_command_desc.
Definition cartesian_pose_command_value_encode := value_encode cartesian_pose_command_desc.
Definition cartesian_pose_command_value_decode := value_decode cartesian_pose_command_desc.

(** *** [cartesian_velocity_command] *)

Definition cartesian_velocity_command_clear := wlc_clear cartesian_velocity_command_desc.
Definition cartesian_velocity_command_encoded_size := wlc_encoded_size cartesian_velocity_command_desc.
Definition cartesian_velocity_command_encode := wlc_encode cartesian_velocity_command_desc.
Definition cartesian_velocity_command_decode := wlc_decode cartesian_velocity_command_desc.
Definition cartesian_velocity_command_wlc_detail_fingerprint := wlc_fingerprint cartesian_velocity_command_desc.
Definition cartesian_velocity_command_value_defaults := value_defaults cartesian_velocity_command_desc.
Definition cartesian_velocity_command_value_copy_fields := value_copy_fields cartesian_velocity_command_desc.
Definition cartesian_velocity_command_wlc_detail_value_copy := value_copy cartesian_velocity_command_desc.
Definition cartesian_velocity_command_value_clear := value_clear cartesian_velocity_command_desc.
Definition cartesian_velocity_command_value_from_view := value_from_view cartesian_velocity_command_desc.
Definition cartesian_velocity_command_value_borrow := value_borrow cartesian_velocity_command_desc.
Definition cartesian_velocity_command_value_to_view := value_to_view cartesian_velocity_command_desc.
Definition cartesian_velocity_command_value_encoded_size := value_encoded_size cartesian_velocity_command_desc.
Definition cartesian_velocity_command_value_encode := value_encode cartesian_velocity_command_desc.
Definition cartesian_velocity_command_value_decode := value_decode cartesian_velocity_command_desc.

(** *** [gripper_position_velocity_command] *)

Definition gripper_position_velocity_command_clear := wlc_clear gripper_position_velocity_command_desc.
Definition gripper_position_velocity_command_encoded_size := wlc_encoded_size gripper_position_velocity_command_desc.
Definition gripper_position_velocity_command_encode := wlc_encode gripper_position_velocity_command_desc.
Definition gripper_position_velocity_command_decode := wlc_decode gripper_position_velocity_command_desc.
Definition gripper_position_velocity_command_wlc_detail_fingerprint := wlc_fingerprint gripper_position_velocity_command_desc.
Definition gripper_position_velocity_command_value_defaults := value_defaults gripper_position_velocity_command_desc.
Definition gripper_position_velocity_command_value_copy_fields := value_copy_fields gripper_position_velocity_command_desc.
Definition gripper_position_velocity_command_wlc_detail_value_copy := value_copy gripper_position_velocity_command_desc.
Definition gripper_position_velocity_command_value_clear := value_clear gripper_position_velocity_command_desc.
Definition gripper_position_velocity_command_value_from_view := value_from_view gripper_position_velocity_command_desc.
Definition gripper_position_velocity_command_value_borrow := value_borrow gripper_position_velocity_command_desc.
Definition gripper_position_velocity_command_value_to_view := value_to_view gripper_position_velocity_command_desc.
Definition gripper_position_velocity_command_value_encoded_size := value_encoded_size gripper_position_velocity_command_desc.
Definition gripper_position_velocity_command_value_encode := value_encode gripper_position_velocity_command_desc.
Definition gripper_position_velocity_command_value_decode := value_decode gripper_position_velocity_command_desc.

(** *** [gripper_velocity_command] *)

Definition gripper_velocity_command_clear := wlc_clear gripper_velocity_command_desc.
Definition gripper_velocity_command_encoded_size := wlc_encoded_size gripper_velocity_command_desc.
Definition gripper_velocity_command_encode := wlc_encode gripper_velocity_command_desc.
Definition gripper_velocity_command_decode := wlc_decode gripper_velocity_command_desc.
Definition gripper_velocity_command_wlc_detail_fingerprint := wlc_fingerprint gripper_velocity_command_desc.
Definition gripper_velocity_command_value_defaults := value_defaults gripper_velocity_command_desc.
Definition gripper_velocity_command_value_copy_fields := value_copy_fields gripper_velocity_command_desc.
Definition gripper_velocity_command_wlc_detail_value_copy := value_copy gripper_velocity_command_desc.
Definition gripper_velocity_command_value_clear := value_clear gripper_velocity_command_desc.
Definition gripper_velocity_command_value_from_view := value_from_view gripper_velocity_command_desc.
Definition gripper_velocity_command_value_borrow := value_borrow gripper_velocity_command_desc.
Definition gripper_velocity_command_value_to_view := value_to_view gripper_velocity_command_desc.
Definition gripper_velocity_command_value_encoded_size := value_encoded_size gripper_velocity_command_desc.
Definition gripper_velocity_command_value_encode := value_encode gripper_velocity_command_desc.
Definition gripper_velocity_command_value_decode := value_decode gripper_velocity_command_desc.

(** *** [gripper_pvt_command] *)

Definition gripper_pvt_command_clear := wlc_clear gripper_pvt_command_desc.
Definition gripper_pvt_command_encoded_size := wlc_encoded_size gripper_pvt_command_desc.
Definition gripper_pvt_command_encode := wlc_encode gripper_pvt_command_desc.
Definition gripper_pvt_command_decode := wlc_decode gripper_pvt_command_desc.
Definition gripper_pvt_command_wlc_detail_fingerprint := wlc_fingerprint gripper_pvt_command_desc.
Definition gripper_pvt_command_value_defaults := value_defaults gripper_pvt_command_desc.
Definition gripper_pvt_command_value_copy_fields := value_copy_fields gripper_pvt_command_desc.
Definition gripper_pvt_command_wlc_detail_value_copy := value_copy gripper_pvt_command_desc.
Definition gripper_pvt_command_value_clear := value_clear gripper_pvt_command_desc.
Definition gripper_pvt_command_value_from_view := value_from_view gripper_pvt_command_desc.
Definition gripper_pvt_command_value_borrow := value_borrow gripper_pvt_command_desc.
Definition gripper_pvt_command_value_to_view := value_to_view gripper_pvt_command_desc.
Definition gripper_pvt_command_value_encoded_size := value_encoded_size gripper_pvt_command_desc.
Definition gripper_pvt_command_value_encode := value_encode gripper_pvt_command_desc.
Definition gripper_pvt_command_value_decode := value_decode gripper_pvt_command_desc.

(** *** [image_version] *)

Definition image_version_clear := wlc_clear image_version_desc.
Definition image_version_encoded_size := wlc_encoded_size image_version_desc.
Definition image_version_encode := wlc_encode image_version_desc.
Definition image_version_decode := wlc_decode image_version_desc.
Definition image_version_wlc_detail_fingerprint := wlc_fingerprint image_version_desc.
Definition image_version_value_defaults := value_defaults image_version_desc.
Definition image_version_value_copy_fields := value_copy_fields image_version_desc.
Definition image_version_wlc_detail_value_copy := value_copy image_version_desc.
Definition image_version_value_clear := value_clear image_version_desc.
Definition image_version_value_from_view := value_from_view image_version_desc.
Definition image_version_value_borrow := value_borrow image_version_desc.
Definition image_version_value_to_view := value_to_view image_version_desc.
Definition image_version_value_encoded_size := value_encoded_size image_version_desc.
Definition image_version_value_encode := value_encode image_version_desc.
Definition image_version_value_decode := value_decode image_version_desc.

(** *** [boot_status_info] *)

Definition boot_status_info_clear := wlc_clear boot_status_info_desc.
Definition boot_status_info_encoded_size := wlc_encoded_size boot_status_info_desc.
Definition boot_status_info_encode := wlc_encode boot_status_info_desc.
Definition boot_status_info_decode := wlc_decode boot_status_info_desc.
Definition boot_status_info_wlc_detail_fingerprint := wlc_fingerprint boot_status_info_desc.
Definition boot_status_info_value_defaults := value_defaults boot_status_info_desc.
Definition boot_status_info_value_copy_fields := value_copy_fields boot_status_info_desc.
Definition boot_status_info_wlc_detail_value_copy := value_copy boot_status_info_desc.
Definition boot_status_info_value_clear := value_clear boot_status_info_desc.
Definition boot_status_info_value_from_view := value_from_view boot_status_info_desc.
Definition boot_status_info_value_borrow := value_borrow boot_status_info_desc.
Definition boot_status_info_value_to_view := value_to_view boot_status_info_desc.
Definition boot_status_info_value_encoded_size := value_encoded_size boot_status_info_desc.
Definition boot_status_info_value_encode := value_encode boot_status_info_desc.
Definition boot_status_info_value_decode := value_decode boot_status_info_desc.

(** *** [bulk_begin] *)

Definition bulk_begin_clear := wlc_clear bulk_begin_desc.
Definition bulk_begin_encoded_size := wlc_encoded_size bulk_begin_desc.
Definition bulk_begin_encode := wlc_encode bulk_begin_desc.
Definition bulk_begin_decode := wlc_decode bulk_begin_desc.
Definition bulk_begin_wlc_detail_fingerprint := wlc_fingerprint bulk_begin_desc.
Definition bulk_begin_value_defaults := value_defaults bulk_begin_desc.
Definition bulk_begin_value_copy_fields := value_copy_fields bulk_begin_desc.
Definition bulk_begin_wlc_detail_value_copy := value_copy bulk_begin_desc.
Definition bulk_begin_value_clear := value_clear bulk_begin_desc.
Definition bulk_begin_value_from_view := value_from_view bulk_begin_desc.
Definition bulk_begin_value_borrow := value_borrow bulk_begin_desc.
Definition bulk_begin_value_to_view := value_to_view bulk_begin_desc.
Definition bulk_begin_value_encoded_size := value_encoded_size bulk_begin_desc.
Definition bulk_begin_value_encode := value_encode bulk_begin_desc.
Definition bulk_begin_value_decode := value_decode bulk_begin_desc.

(** *** [bulk_chunk] *)

Definition bulk_chunk_clear := wlc_clear bulk_chunk_desc.
Definition bulk_chunk_encoded_size := wlc_encoded_size bulk_chunk_desc.
Definition bulk_chunk_encode := wlc_encode bulk_chunk_desc.
Definition bulk_chunk_decode := wlc_decode bulk_chunk_desc.
Definition bulk_chunk_wlc_detail_fingerprint := wlc_fingerprint bulk_chunk_desc.
Definition bulk_chunk_value_defaults := value_defaults bulk_chunk_desc.
Definition bulk_chunk_value_copy_fields := value_copy_fields bulk_chunk_desc.
Definition bulk_chunk_wlc_detail_value_copy := value_copy bulk_chunk_desc.
Definition bulk_chunk_value_clear := value_clear bulk_chunk_desc.
Definition bulk_chunk_value_from_view := value_from_view bulk_chunk_desc.
Definition bulk_chunk_value_borrow := value_borrow bulk_chunk_desc.
Definition bulk_chunk_value_to_view := value_to_view bulk_chunk_desc.
Definition bulk_chunk_value_encoded_size := value_encoded_size bulk_chunk_desc.
Definition bulk_chunk_value_encode := value_encode bulk_chunk_desc.
Definition bulk_chunk_value_decode := value_decode bulk_chunk_desc.

(** *** [bulk_end] *)

Definition bulk_end_clear := wlc_clear bulk_end_desc.
Definition bulk_end_encoded_size := wlc_encoded_size bulk_end_desc.
Definition bulk_end_encode := wlc_encode bulk_end_desc.
Definition bulk_end_decode := wlc_decode bulk_end_desc.
Definition bulk_end_wlc_detail_fingerprint := wlc_fingerprint bulk_end_desc.
Definition bulk_end_value_defaults := value_defaults bulk_end_desc.
Definition bulk_end_value_copy_fields := value_copy_fields bulk_end_desc.
Definition bulk_end_wlc_detail_value_copy := value_copy bulk_end_desc.
Definition bulk_end_value_clear := value_clear bulk_end_desc.
Definition bulk_end_value_from_view := value_from_view bulk_end_desc.
Definition bulk_end_value_borrow := value_borrow bulk_end_desc.
Definition bulk_end_value_to_view := value_to_view bulk_end_desc.
Definition bulk_end_value_encoded_size := value_encoded_size bulk_end_desc.
Definition bulk_end_value_encode := value_encode bulk_end_desc.
Definition bulk_end_value_decode := value_decode bulk_end_desc.

(** *** [bulk_abort] *)

Definition bulk_abort_clear := wlc_clear bulk_abort_desc.
Definition bulk_abort_encoded_size := wlc_encoded_size bulk_abort_desc.
Definition bulk_abort_encode := wlc_encode bulk_abort_desc.
Definition bulk_abort_decode := wlc_decode bulk_abort_desc.
Definition bulk_abort_wlc_detail_fingerprint := wlc_fingerprint bulk_abort_desc.
Definition bulk_abort_value_defaults := value_defaults bulk_abort_desc.
Definition bulk_abort_value_copy_fields := value_copy_fields bulk_abort_desc.
Definition bulk_abort_wlc_detail_value_copy := value_copy bulk_abort_desc.
Definition bulk_abort_value_clear := value_clear bulk_abort_desc.
Definition bulk_abort_value_from_view := value_from_view bulk_abort_desc.
Definition bulk_abort_value_borrow := value_borrow bulk_abort_desc.
Definition bulk_abort_value_to_view := value_to_view bulk_abort_desc.
Definition bulk_abort_value_encoded_size := value_encoded_size bulk_abort_desc.
Definition bulk_abort_value_encode := value_encode bulk_abort_desc.
Definition bulk_abort_value_decode := value_decode bulk_abort_desc.

(** *** [bulk_status] *)

Definition bulk_status_clear := wlc_clear bulk_status_desc.
Definition bulk_status_encoded_size := wlc_encoded_size bulk_status_desc.
Definition bulk_status_encode := wlc_encode bulk_status_desc.
Definition bulk_status_decode := wlc_decode bulk_status_desc.
Definition bulk_status_wlc_detail_fingerprint := wlc_fingerprint bulk_status_desc.
Definition bulk_status_value_defaults := value_defaults bulk_status_desc.
Definition bulk_status_value_copy_fields := value_copy_fields bulk_status_desc.
Definition bulk_status_wlc_detail_value_copy := value_copy bulk_status_desc.
Definition bulk_status_value_clear := value_clear bulk_status_desc.
Definition bulk_status_value_from_view := value_from_view bulk_status_desc.
Definition bulk_status_value_borrow := value_borrow bulk_status_desc.
Definition bulk_status_value_to_view := value_to_view bulk_status_desc.
Definition bulk_status_value_encoded_size := value_encoded_size bulk_status_desc.
Definition bulk_status_value_encode := value_encode bulk_status_desc.
Definition bulk_status_value_decode := value_decode bulk_status_desc.

(** *** [get_boot_status_request] *)

Definition get_boot_status_request_clear := wlc_clear get_boot_status_request_desc.
Definition get_boot_status_request_encoded_size := wlc_encoded_size get_boot_status_request_desc.
Definition get_boot_status_request_encode := wlc_encode get_boot_status_request_desc.
Definition get_boot_status_request_decode := wlc_decode get_boot_status_request_desc.
Definition get_boot_status_request_wlc_detail_fingerprint := wlc_fingerprint get_boot_status_request_desc.
Definition get_boot_status_request_value_defaults := value_defaults get_boot_status_request_desc.
Definition get_boot_status_request_value_copy_fields := value_copy_fields get_boot_status_request_desc.
Definition get_boot_status_request_wlc_detail_value_copy := value_copy get_boot_status_request_desc.
Definition get_boot_status_request_value_clear := value_clear get_boot_status_request_desc.
Definition get_boot_status_request_value_from_view := value_from_view get_boot_status_request_desc.
Definition get_boot_status_request_value_borrow := value_borrow get_boot_status_request_desc.
Definition get_boot_status_request_value_to_view := value_to_view get_boot_status_request_desc.
Definition get_boot_status_request_value_encoded_size := value_encoded_size get_boot_status_request_desc.
Definition get_boot_status_request_value_encode := value_encode get_boot_status_request_desc.
Definition get_boot_status_request_value_decode := value_decode get_boot_status_request_desc.

(** *** [get_boot_status_response] *)

Definition get_boot_status_response_clear := wlc_clear get_boot_status_response_desc.
Definition get_boot_status_response_encoded_size := wlc_encoded_size get_boot_status_response_desc.
Definition get_boot_status_response_encode := wlc_encode get_boot_status_response_desc.
Definition get_boot_status_response_decode := wlc_decode get_boot_status_response_desc.
Definition get_boot_status_response_wlc_detail_fingerprint := wlc_fingerprint get_boot_status_response_desc.
Definition get_boot_status_response_value_defaults := value_defaults get_boot_status_response_desc.
Definition get_boot_status_response_value_copy_fields := value_copy_fields get_boot_status_response_desc.
Definition get_boot_status_response_wlc_detail_value_copy := value_copy get_boot_status_response_desc.
Definition get_boot_status_response_value_clear := value_clear get_boot_status_response_desc.
Definition get_boot_status_response_value_from_view := value_from_view get_boot_status_response_desc.
Definition get_boot_status_response_value_borrow := value_borrow get_boot_status_response_desc.
Definition get_boot_status_response_value_to_view := value_to_view get_boot_status_response_desc.
Definition get_boot_status_response_value_encoded_size := value_encoded_size get_boot_status_response_desc.
Definition get_boot_status_response_value_encode := value_encode get_boot_status_response_desc.
Definition get_boot_status_response_value_decode := value_decode get_boot_status_response_desc.

(** *** [start_upgrade_request] *)

Definition start_upgrade_request_clear := wlc_clear start_upgrade_request_desc.
Definition start_upgrade_request_encoded_size := wlc_encoded_size start_upgrade_request_desc.
Definition start_upgrade_request_encode := wlc_encode start_upgrade_request_desc.
Definition start_upgrade_request_decode := wlc_decode start_upgrade_request_desc.
Definition start_upgrade_request_wlc_detail_fingerprint := wlc_fingerprint start_upgrade_request_desc.
Definition start_upgrade_request_value_defaults := value_defaults start_upgrade_request_desc.
Definition start_upgrade_request_value_copy_fields := value_copy_fields start_upgrade_request_desc.
Definition start_upgrade_request_wlc_detail_value_copy := value_copy start_upgrade_request_desc.
Definition start_upgrade_request_value_clear := value_clear start_upgrade_request_desc.
Definition start_upgrade_request_value_from_view := value_from_view start_upgrade_request_desc.
Definition start_upgrade_request_value_borrow := value_borrow start_upgrade_request_desc.
Definition start_upgrade_request_value_to_view := value_to_view start_upgrade_request_desc.
Definition start_upgrade_request_value_encoded_size := value_encoded_size start_upgrade_request_desc.
Definition start_upgrade_request_value_encode := value_encode start_upgrade_request_desc.
Definition start_upgrade_request_value_decode := value_decode start_upgrade_request_desc.

(** *** [start_upgrade_response] *)

Definition start_upgrade_response_clear := wlc_clear start_upgrade_response_desc.
Definition start_upgrade_response_encoded_size := wlc_encoded_size start_upgrade_response_desc.
Definition start_upgrade_response_encode := wlc_encode start_upgrade_response_desc.
Definition start_upgrade_response_decode := wlc_decode start_upgrade_response_desc.
Definition start_upgrade_response_wlc_detail_fingerprint := wlc_fingerprint start_upgrade_response_desc.
Definition start_upgrade_response_value_defaults := value_defaults start_upgrade_response_desc.
Definition start_upgrade_response_value_copy_fields := value_copy_fields start_upgrade_response_desc.
Definition start_upgrade_response_wlc_detail_value_copy := value_copy start_upgrade_response_desc.
Definition start_upgrade_response_value_clear := value_clear start_upgrade_response_desc.
Definition start_upgrade_response_value_from_view := value_from_view start_upgrade_response_desc.
Definition start_upgrade_response_value_borrow := value_borrow start_upgrade_response_desc.
Definition start_upgrade_response_value_to_view := value_to_view start_upgrade_response_desc.
Definition start_upgrade_response_value_encoded_size := value_encoded_size start_upgrade_response_desc.
Definition start_upgrade_response_value_encode := value_encode start_upgrade_response_desc.
Definition start_upgrade_response_value_decode := value_decode start_upgrade_response_desc.

(** *** [reboot_request] *)

Definition reboot_request_clear := wlc_clear reboot_request_desc.
Definition reboot_request_encoded_size := wlc_encoded_size reboot_request_desc.
Definition reboot_request_encode := wlc_encode reboot_request_desc.
Definition reboot_request_decode := wlc_decode reboot_request_desc.
Definition reboot_request_wlc_detail_fingerprint := wlc_fingerprint reboot_request_desc.
Definition reboot_request_value_defaults := value_defaults reboot_request_desc.
Definition reboot_request_value_copy_fields := value_copy_fields reboot_request_desc.
Definition reboot_request_wlc_detail_value_copy := value_copy reboot_request_desc.
Definition reboot_request_value_clear := value_clear reboot_request_desc.
Definition reboot_request_value_from_view := value_from_view reboot_request_desc.
Definition reboot_request_value_borrow := value_borrow reboot_request_desc.
Definition reboot_request_value_to_view := value_to_view reboot_request_desc.
Definition reboot_request_value_encoded_size := value_encoded_size reboot_request_desc.
Definition reboot_request_value_encode := value_encode reboot_request_desc.
Definition reboot_request_value_decode := value_decode reboot_request_desc.

(** *** [reboot_response] *)

Definition reboot_response_clear := wlc_clear reboot_response_desc.
Definition reboot_response_encoded_size := wlc_encoded_size reboot_response_desc.
Definition reboot_response_encode := wlc_encode reboot_response_desc.
Definition reboot_response_decode := wlc_decode reboot_response_desc.
Definition reboot_response_wlc_detail_fingerprint := wlc_fingerprint reboot_response_desc.
Definition reboot_response_value_defaults := value_defaults reboot_response_desc.
Definition reboot_response_value_copy_fields := value_copy_fields reboot_response_desc.
Definition reboot_response_wlc_detail_value_copy := value_copy reboot_response_desc.
Definition reboot_response_value_clear := value_clear reboot_response_desc.
Definition reboot_response_value_from_view := value_from_view reboot_response_desc.
Definition reboot_response_value_borrow := value_borrow reboot_response_desc.
Definition reboot_response_value_to_view := value_to_view reboot_response_desc.
Definition reboot_response_value_encoded_size := value_encoded_size reboot_response_desc.
Definition reboot_response_value_encode := value_encode reboot_response_desc.
Definition reboot_response_value_decode := value_decode reboot_response_desc.
