(* ===== verification/FciProperties.v ===== *)
(** * The message codec of the device protocol

    The theorems about the codec, for the tables of [FciMessages.v]. *)

From Stdlib Require Import String.
From S2P Require Import Prelude WlcWire WlcSchema WlcCodec WlcHash WlcRoundtrip WlcDecoded.
From S2P Require Import WlcCompat WlcValue FciMessages FciApi.

(** ** The tables *)

(** Every table of the protocol is what the codec assumes of it: the stored
    key bytes are the varint of [number << 3 | wire], the wire type is that of
    the kind, the numbers increase within 1..65535, a dense table is
    consecutive, packed elements have the width of their kind, and every span
    member has a bounded inline array. *)
Theorem fci_tables_wf :
  forallb (fun d => wf_desc d && bounded d) fci_descs = true.
Proof. vm_compute. reflexivity. Qed.

Lemma desc_wf d : In d fci_descs -> wf_desc d = true /\ bounded d = true.
Proof.
  intros Hd. assert (forallb (fun d => wf_desc d && bounded d) fci_descs = true) as H
    by (vm_compute; reflexivity).
  rewrite forallb_forall in H. by apply andb_prop, H.
Qed.

(** Struct values used by the witnesses. *)
Definition sample_version : wstruct := [SOpt true (VInt 1); SOpt true (VInt 300); SOpt true (VInt 70000)].
Definition sample_info : wstruct :=
  [SOpt true (VMsg sample_version); SOpt true (VMsg sample_version);
   SOpt true (VSpan (Some [70; 108; 111]) 3); SOpt true (VSpan (Some [195; 169]) 2);
   SOpt true (VInt (-1)); SOpt true (VSpan None 0); SOpt false (VInt 9)].

Ltac in_descs := unfold fci_descs; repeat (first [left; reflexivity | right]).

(** ** Encoding and decoding *)

(** C1: decoding what a message's encoder wrote gives the message back: every
    present member with its value, every absent one cleared, whatever the
    decoder's output struct held before. *)
Theorem wlc_roundtrip d slots cap n out old :
  In d fci_descs -> valid d slots = true ->
  wlc_encode d slots cap = (Ok n, out) ->
  wlc_decode d out old = (WL_CODEC_OK, canon d slots).
Proof.
  intros [Hwf _]%desc_wf Hv. unfold wlc_encode.
  destruct (wlc_measure d slots) as [m|] eqn:Hm; [|done]. destruct (cap <? m); [done|].
  rewrite (emit_cursor d slots m Hwf Hv Hm). intros [= _ <-]. by eapply decode_enc.
Qed.

Lemma wlc_roundtrip_witness :
  In device_info_desc fci_descs /\ valid device_info_desc sample_info = true /\
  wlc_decode device_info_desc (snd (wlc_encode device_info_desc sample_info 64)) [] =
    (WL_CODEC_OK, canon device_info_desc sample_info).
Proof.
  split; [in_descs|]. split; [vm_compute; reflexivity|].
  apply (wlc_roundtrip device_info_desc sample_info 64 35 _ []);
    [in_descs|vm_compute; reflexivity|vm_compute; reflexivity].
Defined.

(** C23: whatever input a decoder accepts, the struct it stores encodes again
    into no more bytes than the input had, and the re-encoding decodes to the
    same struct. *)
Theorem wlc_decode_canonical d input old slots :
  In d fci_descs -> input_ok input -> wlc_decode d input old = (WL_CODEC_OK, slots) ->
  valid d slots = true /\
  exists n out, wlc_encode d slots (Z.of_nat (length input)) = (Ok n, out) /\
    Z.of_nat (length out) = n /\ forall old', wlc_decode d out old' = (WL_CODEC_OK, slots).
Proof.
  intros [Hwf _]%desc_wf Hin Hd.
  destruct (decode_accepts d Hwf input old slots Hin Hd) as (Hv & Hc & Hl & Hm).
  split; [done|]. exists (Z.of_nat (length (enc d slots))), (enc d slots).
  unfold wlc_encode. rewrite Hm, (proj2 (Z.ltb_ge _ _)) by done.
  rewrite (emit_cursor d slots _ Hwf Hv Hm). split; [done|]. split; [done|].
  intros old'. rewrite <- Hc at 2. by eapply decode_enc.
Qed.

(** The optional last field first, then an unknown one. *)
Definition shuffled : bytes := [24; 7; 8; 1; 122; 2; 0; 0; 16; 2].

Lemma wlc_decode_canonical_witness :
  input_ok shuffled /\
  exists slots, wlc_decode semantic_version_desc shuffled [] = (WL_CODEC_OK, slots) /\
  valid semantic_version_desc slots = true.
Proof.
  assert (input_ok shuffled) as Hok.
  { split; [apply bytes_okb_spec; vm_compute; reflexivity|vm_compute; discriminate]. }
  split; [exact Hok|]. eexists. split; [vm_compute; reflexivity|].
  refine (proj1 (wlc_decode_canonical semantic_version_desc shuffled [] _ _ Hok _));
    [in_descs|vm_compute; reflexivity].
Defined.

(** C38: encoding never stores more bytes than the capacity it is given, and
    succeeds exactly when the struct measures and its measure fits; the bytes
    are then the reference encoding and their number the returned length. *)
Theorem wlc_encode_exact d slots cap :
  In d fci_descs -> valid d slots = true -> 0 <= cap ->
  Z.of_nat (length (snd (wlc_encode d slots cap))) <= cap /\
  forall n, fst (wlc_encode d slots cap) = Ok n <->
    wlc_measure d slots = Ok n /\ n <= cap /\
    snd (wlc_encode d slots cap) = enc d slots /\ n = Z.of_nat (length (enc d slots)).
Proof.
  intros [Hwf _]%desc_wf Hv Hcap. unfold wlc_encode.
  destruct (wlc_measure d slots) as [m|s] eqn:Hm.
  - destruct (measure_enc false d Hwf slots m Hv Hm) as [Hml _].
    destruct (Z.ltb_spec cap m); cbn [fst snd length].
    + split; [lia|]. intros n. split; [done|]. intros ([= <-] & ? & _). lia.
    + rewrite (emit_cursor d slots m Hwf Hv Hm). cbn [fst snd]. split; [lia|].
      intros n. split; [intros [= <-]; done|by intros ([= <-] & _)].
  - cbn [fst snd length]. split; [lia|]. intros n. split; [done|by intros (? & _)].
Qed.

Lemma wlc_encode_exact_witness :
  In semantic_version_desc fci_descs /\ valid semantic_version_desc sample_version = true /\
  Z.of_nat (length (snd (wlc_encode semantic_version_desc sample_version 4))) <= 4.
Proof.
  split; [in_descs|]. split; [vm_compute; reflexivity|].
  refine (proj1 (wlc_encode_exact semantic_version_desc sample_version 4 _ _ _));
    [in_descs|vm_compute; reflexivity|lia].
Defined.

(** Forward compatibility: fields of other numbers, before, between and
    after the known ones, do not change what a message decodes to. *)
Theorem wlc_decode_unknown_fields d slots n input old :
  In d fci_descs -> valid d slots = true -> wlc_measure d slots = Ok n ->
  extended (fields d) (fields d) slots input ->
  wlc_decode d input old = (WL_CODEC_OK, canon d slots).
Proof. intros [Hwf _]%desc_wf Hv Hm Hext. by eapply decode_extended. Qed.

Lemma wlc_decode_unknown_fields_witness :
  exists input, extended (fields reboot_request_desc) (fields reboot_request_desc)
    [SOpt true (VInt 5); SOpt true (VInt 1)] input /\
  wlc_decode reboot_request_desc input [] =
    (WL_CODEC_OK, canon reboot_request_desc [SOpt true (VInt 5); SOpt true (VInt 1)]).
Proof.
  assert (exists input, extended (fields reboot_request_desc) (fields reboot_request_desc)
    [SOpt true (VInt 5); SOpt true (VInt 1)] input) as [input Hext].
  { eexists.
    eapply (extended_cons _ _ _ _ _ (wlc_putv (9 * 8 + 2) ++ prefixed [1; 2; 3] ++ []));
      [constructor; [lia|reflexivity|constructor; unfold in_u; simpl; lia|constructor]|].
    eapply (extended_cons _ _ _ _ _ []); [constructor|].
    eapply (extended_nil _ (wlc_putv (4000 * 8 + 5) ++ [0; 0; 0; 0] ++ [])).
    constructor; [lia|reflexivity|constructor; reflexivity|constructor]. }
  exists input. split; [exact Hext|].
  refine (wlc_decode_unknown_fields reboot_request_desc _ 4 _ [] _ _ _ Hext);
    [in_descs|vm_compute; reflexivity|vm_compute; reflexivity].
Defined.

(** A second occurrence of a present field is rejected as a duplicate, at
    whatever follows it. *)
Theorem wlc_decode_duplicate_field d slots n i f s rest old :
  In d fci_descs -> valid d slots = true -> wlc_measure d slots = Ok n ->
  fields d !! i = Some f -> slots !! i = Some s -> present f s ->
  fst (wlc_decode d (enc d slots ++ wlc_putv (number f * 8 + wire f) ++ rest) old) =
    WL_CODEC_ERR_DUPLICATE_FIELD.
Proof. intros [Hwf _]%desc_wf ?????. by eapply decode_duplicate. Qed.

Lemma wlc_decode_duplicate_field_witness :
  exists f, fields semantic_version_desc !! 1%nat = Some f /\
  fst (wlc_decode semantic_version_desc
    (enc semantic_version_desc sample_version ++ wlc_putv (number f * 8 + wire f) ++ [0]) []) =
    WL_CODEC_ERR_DUPLICATE_FIELD.
Proof.
  eexists. split; [reflexivity|].
  refine (wlc_decode_duplicate_field semantic_version_desc sample_version 9 1 _ _ [0] [] _ _ _ _ _ _);
    [in_descs|vm_compute; reflexivity|vm_compute; reflexivity|reflexivity|reflexivity|exact I].
Defined.

(** The fingerprint of a message is the FNV-1a hash, from the seed, of the
    bytes its encoder writes, with their number. *)
Theorem wlc_fingerprint_fnv d slots cap n out seed :
  In d fci_descs -> valid d slots = true -> wlc_encode d slots cap = (Ok n, out) ->
  wlc_fingerprint d slots seed = Ok (foldl fnv_step seed out, n).
Proof.
  intros [Hwf _]%desc_wf Hv. unfold wlc_encode.
  destruct (wlc_measure d slots) as [m|] eqn:Hm; [|done]. destruct (cap <? m); [done|].
  rewrite (emit_cursor d slots m Hwf Hv Hm). intros [= -> <-]. by apply emit_hash.
Qed.

Lemma wlc_fingerprint_fnv_witness :
  wlc_fingerprint semantic_version_desc sample_version 7 =
    Ok (foldl fnv_step 7 [8; 1; 16; 172; 2; 24; 240; 162; 4], 9).
Proof.
  refine (wlc_fingerprint_fnv semantic_version_desc sample_version 20 9 _ 7 _ _ _);
    [in_descs|vm_compute; reflexivity|vm_compute; reflexivity].
Defined.

(** What [*_value_encode] writes fits, is accepted by [*_decode] whatever the
    destination held, and is the value again for [*_value_decode]. *)
Lemma value_encode_sound d v cap n out :
  In d fci_descs -> value_normal d v -> value_encode d v cap = (Ok n, out) ->
  Z.of_nat (length out) = n /\ n <= cap /\ (forall old, fst (wlc_decode d out old) = WL_CODEC_OK) /\ value_decode d out = Ok v.
Proof.
  intros Hd Hv. pose proof (desc_wf d Hd) as [Hwf Hb].
  destruct (borrow_normal d Hwf Hb v [] Hv) as (w & Hw & Hval & Hc & Hcp).
  unfold value_encode, value_decode, wlc_encode. rewrite Hw.
  destruct (wlc_measure d w) as [m|] eqn:Hm; [|done]. destruct (Z.ltb_spec cap m); [done|].
  rewrite (emit_cursor d w m Hwf Hval Hm). intros [= <- <-].
  destruct (measure_enc false d Hwf w m Hval Hm) as [Hk _]. split; [by rewrite Hk|]. split; [lia|].
  split; [intros old; by rewrite (decode_enc d Hwf w m old Hval Hm)|].
  rewrite (decode_enc d Hwf w m [] Hval Hm), Hc. unfold value_copy. by rewrite Hcp.
Qed.

Lemma value_encode_decode d v cap n out :
  In d fci_descs -> value_normal d v -> value_encode d v cap = (Ok n, out) ->
  value_decode d out = Ok v.
Proof. intros Hd Hv He. by destruct (value_encode_sound d v cap n out Hd Hv He) as (_ & _ & _ & ?). Qed.

(** An owned value that is encoded and decoded is the same value, inline
    arrays and defaults included. *)
Theorem value_roundtrip d v cap n out :
  In d fci_descs -> value_normal d v -> value_encode d v cap = (Ok n, out) ->
  value_decode d out = Ok v.
Proof. apply value_encode_decode. Qed.

Definition sample_name : wstruct :=
  [SOpt true (VSpan (Some ([70; 67; 73] ++ repeat 0 28)) 3)].

Lemma value_roundtrip_witness :
  value_normal set_device_info_request_desc sample_name /\
  value_decode set_device_info_request_desc [18; 3; 70; 67; 73] = Ok sample_name.
Proof.
  assert (value_normal set_device_info_request_desc sample_name) as Hn.
  { split; [|exact I]. split; [simpl; lia|].
    split; [apply bytes_okb_spec; vm_compute; reflexivity|split; reflexivity]. }
  split; [exact Hn|].
  refine (value_roundtrip set_device_info_request_desc sample_name 40 5 _ _ Hn _);
    [in_descs|vm_compute; reflexivity].
Defined.

(** ** Parts of the codec *)

(** The lookup a table asks for (linear, dense or binary) finds the field
    that a scan of the table finds, for every field number. *)
Theorem wlc_find_field_scan d n :
  In d fci_descs -> 0 <= n <= 65535 ->
  wlc_find_field (fields d) (lookup_of d) n = find_linear (fields d) n 0.
Proof.
  intros [Hwf _]%desc_wf Hn. destruct d as [fs l].
  apply wf_desc_inv in Hwf as (Hl & Hlen & _). by apply find_field_linear.
Qed.

Lemma wlc_find_field_scan_witness :
  In device_info_desc fci_descs /\
  wlc_find_field (fields device_info_desc) (lookup_of device_info_desc) 6 = Some 5%nat.
Proof.
  split; [in_descs|].
  rewrite (wlc_find_field_scan device_info_desc 6); [reflexivity|in_descs|lia].
Defined.

(** The varint reader accepts exactly the writer's bytes: it returns [v]
    and [rest'] precisely on the minimal encoding of a 64-bit [v] followed by
    [rest'], so overlong, truncated and overflowing varints are rejected. *)
Theorem wlc_getv_canonical rest v rest' :
  bytes_ok rest ->
  wlc_getv rest = Ok (v, rest') <-> in_u 64 v /\ rest = wlc_putv v ++ rest'.
Proof.
  intros Hok. split; [by apply getv_canonical|]. intros [Hv ->]. by apply getv_putv.
Qed.

Lemma wlc_getv_canonical_witness :
  bytes_ok [172; 2; 9] /\ in_u 64 300 /\ [172; 2; 9] = wlc_putv 300 ++ [9].
Proof.
  assert (bytes_ok [172; 2; 9]) as Hok by (apply bytes_okb_spec; vm_compute; reflexivity).
  split; [exact Hok|]. apply (wlc_getv_canonical [172; 2; 9] 300 [9] Hok). vm_compute. reflexivity.
Defined.

(** The zigzag maps are inverse bijections between the signed and the
    unsigned integers of 32 and of 64 bits. *)
Theorem wlc_zigzag_bijection :
  (forall v, in_s 32 v -> in_u 32 (wlc_z32 v) /\ wlc_uz32 (wlc_z32 v) = v) /\
  (forall u, in_u 32 u -> in_s 32 (wlc_uz32 u) /\ wlc_z32 (wlc_uz32 u) = u) /\
  (forall v, in_s 64 v -> in_u 64 (wlc_z64 v) /\ wlc_uz64 (wlc_z64 v) = v) /\
  (forall u, in_u 64 u -> in_s 64 (wlc_uz64 u) /\ wlc_z64 (wlc_uz64 u) = u).
Proof.
  split_and!; intros x Hx;
    [change (wlc_z32 x) with (zz 32 x); change (wlc_uz32 (zz 32 x)) with (uzz 32 (zz 32 x))
    |change (wlc_uz32 x) with (uzz 32 x); change (wlc_z32 (uzz 32 x)) with (zz 32 (uzz 32 x))
    |change (wlc_z64 x) with (zz 64 x); change (wlc_uz64 (zz 64 x)) with (uzz 64 (zz 64 x))
    |change (wlc_uz64 x) with (uzz 64 x); change (wlc_z64 (uzz 64 x)) with (zz 64 (uzz 64 x))];
    (split; [first [apply zz_range|apply uzz_range]|first [apply uzz_zz|apply zz_uzz]]); (done || lia).
Qed.

(** The decoding loop ends: any fuel of at least the input's length gives
    the result of [wlc_decode]'s. *)
Theorem decode_loop_terminates fs l decs fuel input next out :
  bytes_ok input -> (length input <= fuel)%nat ->
  decode_loop fs l decs fuel input next out = decode_loop fs l decs (length input) input next out.
Proof. intros. by apply decode_loop_fuel. Qed.

Lemma decode_loop_terminates_witness :
  bytes_ok [8; 1] /\
  decode_loop (fields semantic_version_desc) WLC_LOOKUP_LINEAR [] 9 [8; 1] 0 [] =
  decode_loop (fields semantic_version_desc) WLC_LOOKUP_LINEAR [] 2 [8; 1] 0 [].
Proof.
  assert (bytes_ok [8; 1]) as Hok by (apply bytes_okb_spec; vm_compute; reflexivity).
  split; [exact Hok|]. apply decode_loop_terminates; [exact Hok|simpl; lia].
Defined.
