(* ===== verification/FciSizes.v ===== *)
(** * Message identifiers and encoded sizes

    [generated/wirelink/codec/fci_device_values.h], lines 1193-1393: the [*_MESSAGE_ID]
    and [*_MAX_ENCODED_SIZE] constants that the host sizes its buffers with,
    and the bound on the codec that makes them right. *)

From Stdlib Require Import String.
From S2P Require Import Prelude WlcWire WlcSchema WlcCodec WlcRoundtrip WlcValue FciMessages FciApi.
From S2P Require Import FciProperties.

(** The table of each message with its identifier and its maximal size. *)
Definition fci_constants : list (wlc_desc * Z * Z) :=
  [(semantic_version_desc, 20737, 18);
   (device_info_desc, 20738, 154);
   (device_settings_desc, 20739, 203);
   (arm_status_desc, 24577, 233);
   (motor_feedback_desc, 24578, 128);
   (arm_diagnostics_desc, 24580, 67);
   (set_zero_request_desc, 24839, 3);
   (set_zero_response_desc, 24840, 0);
   (clear_error_request_desc, 24841, 3);
   (clear_error_response_desc, 24842, 0);
   (home_request_desc, 25089, 0);
   (home_response_desc, 25090, 0);
   (clear_faults_request_desc, 25093, 0);
   (clear_faults_response_desc, 25094, 0);
   (acquire_control_lease_request_desc, 25097, 14);
   (acquire_control_lease_response_desc, 25098, 14);
   (release_control_lease_request_desc, 25099, 9);
   (release_control_lease_response_desc, 25100, 0);
   (get_motor_feedback_request_desc, 25107, 0);
   (get_motor_feedback_response_desc, 25108, 131);
   (get_device_info_request_desc, 25109, 0);
   (get_device_info_response_desc, 25110, 157);
   (set_device_info_request_desc, 25111, 33);
   (set_device_info_response_desc, 25112, 0);
   (set_arm_control_mode_request_desc, 25113, 6);
   (set_arm_control_mode_response_desc, 25114, 0);
   (set_gripper_control_mode_request_desc, 25115, 6);
   (set_gripper_control_mode_response_desc, 25116, 0);
   (motor_register_read_request_desc, 25117, 6);
   (motor_register_read_response_desc, 25118, 11);
   (motor_register_write_request_desc, 25119, 11);
   (motor_register_write_response_desc, 25120, 0);
   (motor_store_parameters_request_desc, 25121, 3);
   (motor_store_parameters_response_desc, 25122, 0);
   (motor_set_zero_request_desc, 25123, 3);
   (motor_set_zero_response_desc, 25124, 0);
   (set_arm_mode_request_desc, 25125, 6);
   (set_arm_mode_response_desc, 25126, 0);
   (get_device_settings_request_desc, 25128, 0);
   (get_device_settings_response_desc, 25129, 206);
   (set_device_settings_request_desc, 25130, 206);
   (set_device_settings_response_desc, 25131, 206);
   (joint_mit_command_desc, 25345, 160);
   (emergency_stop_request_desc, 25347, 0);
   (emergency_stop_response_desc, 25348, 0);
   (gripper_mit_command_desc, 25349, 55);
   (joint_position_velocity_command_desc, 25350, 78);
   (joint_velocity_command_desc, 25351, 52);
   (joint_pvt_command_desc, 25352, 104);
   (cartesian_pose_command_desc, 25353, 148);
   (cartesian_velocity_command_desc, 25354, 108);
   (gripper_position_velocity_command_desc, 25361, 33);
   (gripper_velocity_command_desc, 25362, 28);
   (gripper_pvt_command_desc, 25363, 38);
   (image_version_desc, 28689, 16);
   (boot_status_info_desc, 28690, 76);
   (bulk_begin_desc, 28704, 24);
   (bulk_chunk_desc, 28705, 2048);
   (bulk_end_desc, 28706, 19);
   (bulk_abort_desc, 28707, 11);
   (bulk_status_desc, 28708, 31);
   (get_boot_status_request_desc, 28928, 6);
   (get_boot_status_response_desc, 28929, 90);
   (start_upgrade_request_desc, 28930, 53);
   (start_upgrade_response_desc, 28931, 34);
   (reboot_request_desc, 28932, 12);
   (reboot_response_desc, 28933, 18)].

(** ** The largest encoding of a table *)

Section max.
Variable max_nested : wlc_desc -> Z.

Definition max_body (f : wlc_field) : Z :=
  match kind f with
  | WLC_BOOL => 1
  | WLC_U8 | WLC_I8 => 2
  | WLC_U16 | WLC_I16 => 3
  | WLC_U32 | WLC_I32 | WLC_ENUM => 5
  | WLC_U64 | WLC_I64 => 10
  | WLC_F32 | WLC_FLOAT32 => 4
  | WLC_F64 | WLC_FLOAT64 => 8
  | WLC_BYTES | WLC_STRING => wlc_vsize (max_length f) + max_length f
  | WLC_MESSAGE =>
      match nested f with Some d => wlc_vsize (max_nested d) + max_nested d | None => 0 end
  end.

Definition max_field (f : wlc_field) : Z :=
  match card f with
  | WLC_PACKED =>
      let n := element f * packed_count f in key_size f + wlc_vsize n + n
  | _ => key_size f + max_body f
  end.

Fixpoint max_fields (fs : list wlc_field) : Z :=
  match fs with [] => 0 | f :: fs' => max_field f + max_fields fs' end.
End max.

Fixpoint max_size (d : wlc_desc) : Z :=
  match d with Desc fs _ => max_fields max_size fs end.

Lemma constants_computed : map (fun c => max_size (fst (fst c))) fci_constants = map snd fci_constants.
Proof. vm_compute. reflexivity. Qed.

(** No size overflows. *)
Section small.
Variable small_nested : wlc_desc -> bool.
Definition small_field (f : wlc_field) : bool :=
  between 0 4 (key_size f) && between_u 32 (element f * packed_count f) &&
  match kind f, nested f with
  | WLC_MESSAGE, Some d => between_u 32 (max_size d) && small_nested d
  | _, _ => true
  end.
End small.
Fixpoint small (d : wlc_desc) : bool :=
  match d with Desc fs _ => forallb (small_field small) fs end.

Lemma desc_small d : In d fci_descs -> small d = true.
Proof.
  intros Hd. assert (forallb small fci_descs = true) as H by (vm_compute; reflexivity).
  rewrite forallb_forall in H. auto.
Qed.

(** ** The bound *)

Lemma vsize_le v w : 0 <= v <= w -> in_u 64 w -> 0 <= wlc_vsize v <= wlc_vsize w.
Proof.
  intros Hv Hw. split; [|by apply wlc_vsize_mono].
  pose proof (wlc_vsize_bounds v ltac:(unfold in_u in *; lia)). lia.
Qed.

Lemma vsize_width v w n : in_u w v -> 0 <= w <= 64 -> wlc_vsize (2 ^ w - 1) <= n -> 0 <= wlc_vsize v <= n.
Proof.
  intros Hv Hw Hn. unfold in_u in *. pose proof (Z.pow_le_mono_r 2 w 64 ltac:(lia) ltac:(lia)).
  pose proof (vsize_le v (2 ^ w - 1) ltac:(lia) ltac:(unfold in_u; lia)). lia.
Qed.

Lemma zz32_width v w : 1 <= w <= 32 -> in_s w v -> in_u w (zz 32 v).
Proof.
  intros Hw Hv. rewrite zz_spec; [|lia|by eapply in_s_weaken; [|done]].
  unfold in_u, in_s in *. assert (2 ^ w = 2 * 2 ^ (w - 1)) as Hp
    by (rewrite <- Z.pow_succ_r by lia; f_equal; lia).
  destruct (Z.ltb_spec v 0); lia.
Qed.

Definition size_bound (d : wlc_desc) : Prop :=
  bounded d = true -> small d = true -> forall slots n,
  valid d slots = true -> wlc_measure d slots = Ok n -> 0 <= n <= max_size d.

Lemma body_bound f v n :
  bounded_field bounded f = true -> small_field small f = true -> valid_value valid f v = true ->
  nested_all size_bound (nested f) -> wlc_body wlc_measure false f v = Ok n ->
  0 <= n <= max_body max_size f.
Proof.
  intros Hb Hsm Hv Hn. unfold wlc_body, max_body, valid_value, bounded_field, small_field in *.
  destruct (kind f) eqn:Hk; destruct v as [z|data len|vs]; try done.
  1: { destruct (negb (z =? 0) && _); [done|]. intros [= <-]. lia. }
  all: try (intros [= <-]; rewrite ?wlc_z32_zz, ?wlc_z64_zz; num_facts; first [lia
    | eapply (vsize_width _ 8); [eassumption || (apply zz32_width; [lia|eassumption])|lia|vm_compute; discriminate]
    | eapply (vsize_width _ 16); [eassumption || (apply zz32_width; [lia|eassumption])|lia|vm_compute; discriminate]
    | eapply (vsize_width _ 32); [eassumption || (apply zz32_width; [lia|eassumption])|lia|vm_compute; discriminate]
    | eapply (vsize_width _ 64); [eassumption || (apply zz_range; [lia|eassumption])|lia|vm_compute; discriminate]]).
  1,2: intros (-> & Hlen & Hok & Hu & Hmax & _)%span_body_enc; [|destruct data; exact Hv];
    rewrite prefixed_length by (unfold in_u in *; lia); rewrite <- Hlen; unfold between in Hb;
    pose proof (vsize_le len (max_length f) ltac:(unfold in_u in *; lia) ltac:(unfold in_u; lia));
    unfold in_u in Hu; lia.
  destruct (nested f) as [d|]; [|done]. apply andb_prop in Hsm as [_ Hsm].
  apply andb_prop in Hsm as [Hmx%between_u_spec Hsm].
  intros (child & Hc & [-> _]%wlc_add_ok)%res_bind_ok.
  specialize (Hn Hb Hsm vs child Hv Hc). unfold in_u in Hmx.
  pose proof (vsize_le child (max_size d) Hn ltac:(unfold in_u; lia)). lia.
Qed.

Lemma field_bound f s n m :
  bounded_field bounded f = true -> small_field small f = true -> valid_slot valid f s = true ->
  nested_all size_bound (nested f) -> measure_field wlc_measure false f s n = Ok m ->
  n <= m <= n + max_field max_size f.
Proof.
  intros Hb Hsm Hv Hn Hm. pose proof Hsm as Hsm'. unfold small_field in Hsm'.
  rewrite !andb_true_iff in Hsm'. destruct Hsm' as [[Hk Hp%between_u_spec] _].
  unfold between in Hk. unfold in_u in Hp. unfold valid_slot, measure_field, max_field in *.
  assert (0 <= max_body max_size f) as Hmb.
  { unfold max_body, bounded_field, small_field in *. destruct (kind f); try lia.
    1,2: unfold between in Hb; pose proof (vsize_le (max_length f) (max_length f) ltac:(lia)
      ltac:(unfold in_u; lia)); lia.
    destruct (nested f) as [d|]; [|lia].
    rewrite !andb_true_iff in Hsm. destruct Hsm as [_ [Hx%between_u_spec _]]. unfold in_u in Hx.
    pose proof (vsize_le (max_size d) (max_size d) ltac:(lia) ltac:(unfold in_u; lia)). lia. }
  pose proof (vsize_le (element f * packed_count f) (element f * packed_count f) ltac:(lia)
    ltac:(unfold in_u; lia)) as Hvs.
  destruct (card f) eqn:Hc; destruct s as [h v|h elems|]; try done.
  - destruct h; cbn [negb] in Hm.
    + apply res_bind_ok in Hm as (body & Hbody & Hm).
      apply res_bind_ok in Hm as (n1 & [-> _]%wlc_add_ok & Hm).
      apply res_bind_ok in Hm as (n2 & [-> _]%wlc_add_ok & [= <-]).
      pose proof (body_bound f v body Hb Hsm Hv Hn Hbody). lia.
    + destruct (negb _); [done|]. injection Hm as <-. lia.
  - destruct h; cbn [negb] in Hm.
    + apply res_bind_ok in Hm as (bytes & Hbytes & Hm).
      assert (bytes = element f * packed_count f) as ->.
      { revert Hbytes. unfold wlc_packed_bytes. destruct (negb _ && _); [done|]. by intros [= <-]. }
      apply res_bind_ok in Hm as (n1 & [-> _]%wlc_add_ok & Hm).
      apply res_bind_ok in Hm as (n2 & [-> _]%wlc_add_ok & [-> _]%wlc_add_ok). lia.
    + destruct (negb _); [done|]. injection Hm as <-. lia.
Qed.

Lemma measure_bound d : size_bound d.
Proof.
  induction d as [fs l IH] using wlc_desc_nested_ind. intros Hb Hsm slots n Hv Hm.
  cbn [bounded small valid max_size] in *. unfold wlc_measure in Hm. cbn [wlc_measure_impl] in Hm.
  enough (forall slots k m, valid_fields valid fs slots = true ->
    measure_fields (wlc_measure_impl false) false fs slots k = Ok m ->
    k <= m <= k + max_fields max_size fs) as H by (specialize (H slots 0 n Hv Hm); lia).
  clear Hv Hm n slots. induction fs as [|f fs IHf]; intros [|s slots] k m Hv Hm; try done.
  - injection Hm as <-. cbn. lia.
  - cbn [forallb valid_fields measure_fields max_fields] in *.
    apply andb_prop in Hb as [Hbf Hb]. apply andb_prop in Hsm as [Hsf Hsm].
    apply andb_prop in Hv as [Hs Hv]. apply Forall_cons_1 in IH as [Hnf IH].
    apply res_bind_ok in Hm as (k1 & Hm1 & Hm).
    pose proof (field_bound f s k k1 Hbf Hsf Hs Hnf Hm1).
    pose proof (IHf IH Hb Hsm slots k1 m Hv Hm). lia.
Qed.

(** The size constants are right: no message of the protocol encodes into
    more bytes than its [*_MAX_ENCODED_SIZE], so a buffer of that size never
    makes an encoder fail for want of room; and no two messages share an
    identifier. *)
Theorem max_encoded_size :
  NoDup (map (fun c => snd (fst c)) fci_constants) /\
  forall d id size slots cap, In (d, id, size) fci_constants -> valid d slots = true -> size <= cap ->
    forall n, wlc_measure d slots = Ok n ->
      n <= size /\ wlc_encode d slots cap = (Ok n, enc d slots) /\ Z.of_nat (length (enc d slots)) = n.
Proof.
  split.
  { apply (bool_decide_eq_true_1 (NoDup (map (fun c => snd (fst c)) fci_constants))).
    vm_compute. reflexivity. }
  intros d id size slots cap Hin Hv Hcap n Hm.
  assert (In d fci_descs) as Hd.
  { apply (in_map (fun c => fst (fst c))) in Hin. exact Hin. }
  assert (max_size d = size) as Hs.
  { pose proof constants_computed as Hc. revert Hin Hc. generalize fci_constants. intros l.
    induction l as [|c l IHl]; [done|]. cbn [map]. intros [->|Hin] [= H1 H2]; [done|auto]. }
  destruct (desc_wf d Hd) as [Hwf Hb].
  pose proof (measure_bound d Hb (desc_small d Hd) slots n Hv Hm) as Hn.
  split; [lia|]. unfold wlc_encode. rewrite Hm, (proj2 (Z.ltb_ge _ _)) by lia.
  rewrite (emit_cursor d slots n Hwf Hv Hm). split; [done|].
  symmetry. by apply (measure_enc false d Hwf slots n Hv Hm).
Qed.

Lemma max_encoded_size_witness :
  wlc_encode device_info_desc sample_info 154 = (Ok 35, enc device_info_desc sample_info).
Proof.
  refine (proj1 (proj2 (proj2 max_encoded_size device_info_desc 20738 154 sample_info 154 _ _ _ 35 _)));
    [right; left; reflexivity|vm_compute; reflexivity|lia|vm_compute; reflexivity].
Defined.
