(* ===== verification/UsbUri.v ===== *)
(** * USB device selection

    [src/UsbDiscovery.cpp]: the [usb://] selectors, the URI a discovered device
    is given, and the selection of a device by URI.  Text is a list of
    character codes; the enumeration of the USB devices,
    [UsbBulkDevice::list_devices], is an argument. *)

From Stdlib Require Import String Ascii.
From S2P Require Import Prelude.

Abbreviation text := (list Z).

(** The characters of a literal. *)
Definition str (s : string) : text :=
  map (fun c => Z.of_N (N_of_ascii c)) (list_ascii_of_string s).
Definition chr (c : ascii) : Z := Z.of_N (N_of_ascii c).

(** ** Data *)

Definition kDefaultUsbVendorId : Z := 12259.
Definition kDefaultUsbProductId : Z := 22348.

Record UsbBulkDeviceInfo := {
  m_vendor_id : Z;
  m_product_id : Z;
  m_bus_number : Z;
  m_device_address : Z;
  m_port_path : list Z;
  m_manufacturer : text;
  m_product : text;
  m_serial_number : text;
  m_display_name : text;
  m_uri : text
}.

Inductive UsbDiscoveryError :=
| UsbNone | InvalidUri | EnumerationFailed | DeviceNotFound | Ambiguous.

Record UsbSelector := {
  sel_vendor_id : Z;
  sel_product_id : Z;
  sel_serial_number : option text;
  sel_port_path : option (list Z)
}.

Record UsbBulkSelectionResult := {
  sr_device : option UsbBulkDeviceInfo;
  sr_error : UsbDiscoveryError;
  sr_match_count : Z;
  sr_system_error : Z
}.

(** ** Library functions *)

(** [std::string_view::starts_with]. *)
Fixpoint starts_with (t p : text) {struct p} : bool :=
  match p, t with
  | [], _ => true
  | c :: p', d :: t' => (c =? d) && starts_with t' p'
  | _ :: _, [] => false
  end.

(** [find_first_of]/[find]: the text before the first character of the set, and
    the text from it on, if there is one. *)
Fixpoint break (stop : Z -> bool) (t : text) : text * option text :=
  match t with
  | [] => ([], None)
  | c :: t' =>
      if stop c then ([], Some (c :: t'))
      else let '(a, b) := break stop t' in (c :: a, b)
  end.

Definition s_hexDigit (c : Z) : option Z :=
  if (chr "0" <=? c) && (c <=? chr "9") then Some (c - chr "0")
  else if (chr "a" <=? c) && (c <=? chr "f") then Some (c - chr "a" + 10)
  else if (chr "A" <=? c) && (c <=? chr "F") then Some (c - chr "A" + 10)
  else None.

(** [std::from_chars] of an [unsigned int]: the longest run of digits of the
    base, its value and what follows; [None] without a digit or above
    [UINT_MAX]. *)
Fixpoint digits (base : Z) (t : text) (acc : Z) (seen : bool) : option (Z * text) :=
  match t with
  | c :: t' =>
      match s_hexDigit c with
      | Some d => if d <? base then digits base t' (acc * base + d) true
                  else if seen then Some (acc, t) else None
      | None => if seen then Some (acc, t) else None
      end
  | [] => if seen then Some (acc, []) else None
  end.
Definition from_chars (base : Z) (t : text) : option (Z * text) :=
  match digits base t 0 false with
  | Some (v, rest) => if v <? 4294967296 then Some (v, rest) else None
  | None => None
  end.

(** ** Selectors *)

Definition s_parseHex16 (t : text) : option Z :=
  let t := if starts_with t (str "0x") || starts_with t (str "0X") then drop 2 t else t in
  match t with
  | [] => None
  | _ => match from_chars 16 t with
         | Some (v, []) => if (v =? 0) || (v >? 65535) then None else Some v
         | _ => None
         end
  end.

Fixpoint percentDecode_loop (t : text) : option text :=
  match t with
  | [] => Some []
  | c :: t1 =>
      if negb (c =? chr "%") then option_map (cons c) (percentDecode_loop t1)
      else match t1 with
      | h :: l :: t' =>
          match s_hexDigit h, s_hexDigit l with
          | Some high, Some low =>
              let decoded := Z.lor (Z.shiftl high 4) low in
              if decoded =? 0 then None else option_map (cons decoded) (percentDecode_loop t')
          | _, _ => None
          end
      | _ => None
      end
  end.
Definition s_percentDecode (t : text) : option text :=
  match percentDecode_loop t with
  | Some [] => None
  | r => r
  end.

Definition s_isUnreserved (c : Z) : bool :=
  ((chr "a" <=? c) && (c <=? chr "z")) || ((chr "A" <=? c) && (c <=? chr "Z")) ||
  ((chr "0" <=? c) && (c <=? chr "9")) || (c =? chr "-") || (c =? chr ".") ||
  (c =? chr "_") || (c =? chr "~").

Definition upper_hex : text := str "0123456789ABCDEF".
Definition hex_at (digs : text) (d : Z) : Z := nth (Z.to_nat d) digs 0.

Definition encode_char (c : Z) : text :=
  if s_isUnreserved c then [c]
  else [chr "%"; hex_at upper_hex (Z.shiftr c 4); hex_at upper_hex (Z.land c 15)].
Definition s_percentEncode (t : text) : text := concat (map encode_char t).

(** The loop of [s_parsePortPath]; each round removes a component, so the
    length of the text is enough fuel. *)
Fixpoint parsePortPath_loop (fuel : nat) (t : text) (result : list Z) : option (list Z) :=
  match t, fuel with
  | [], _ => Some result
  | _, O => None
  | _, S k =>
      let '(component, dot) := break (Z.eqb (chr ".")) t in
      match from_chars 10 component with
      | Some (v, []) =>
          if (v =? 0) || (v >? 255) then None
          else match dot with
          | None => Some (result ++ [v])
          | Some rest => parsePortPath_loop k (tail rest) (result ++ [v])
          end
      | _ => None
      end
  end.
Definition s_parsePortPath (t : text) : option (list Z) :=
  match parsePortPath_loop (length t) t [] with
  | Some [] => None
  | r => r
  end.

(** The part of [s_parseSelector] before the separator. *)
Definition parse_ids (ids : text) : option (Z * Z) :=
  match ids with
  | [] => Some (kDefaultUsbVendorId, kDefaultUsbProductId)
  | _ =>
      match break (Z.eqb (chr ":")) ids with
      | (v, Some p) =>
          match s_parseHex16 v, s_parseHex16 (tail p) with
          | Some vendor, Some product => Some (vendor, product)
          | _, _ => None
          end
      | (_, None) => None
      end
  end.

Definition is_separator (c : Z) : bool := (c =? chr "/") || (c =? chr "?").

Definition s_parseSelector (uri : text) : option UsbSelector :=
  if negb (starts_with uri (str "usb://")) then None
  else
    let '(ids, suffix) := break is_separator (drop 6 uri) in
    match parse_ids ids with
    | None => None
    | Some (vendor, product) =>
        match suffix with
        | None => Some (Build_UsbSelector vendor product None None)
        | Some sv =>
            let separator := hd 0 sv in
            let value := tail sv in
            if separator =? chr "/" then
              match snd (break (Z.eqb (chr "?")) value), s_percentDecode value with
              | None, Some serial => Some (Build_UsbSelector vendor product (Some serial) None)
              | _, _ => None
              end
            else if negb (starts_with value (str "port=")) then None
            else match s_parsePortPath (drop 5 value) with
            | None => None
            | Some path => Some (Build_UsbSelector vendor product None (Some path))
            end
        end
    end.

(** ** The URI of a device *)

(** [%04x] of a 16-bit value. *)
Definition lower_hex : text := str "0123456789abcdef".
Definition hex4 (v : Z) : text :=
  map (fun s => hex_at lower_hex (Z.land (Z.shiftr v s) 15)) [12; 8; 4; 0].

(** [std::to_string] of an 8-bit value. *)
Definition to_string8 (v : Z) : text :=
  (if v >=? 100 then [chr "0" + v / 100] else []) ++
  (if v >=? 10 then [chr "0" + v / 10 mod 10] else []) ++ [chr "0" + v mod 10].

Definition s_baseUri (vendor product : Z) : text :=
  str "usb://" ++ hex4 vendor ++ [chr ":"] ++ hex4 product.

Fixpoint join_path (path : list Z) : text :=
  match path with
  | [] => []
  | [v] => to_string8 v
  | v :: path' => to_string8 v ++ [chr "."] ++ join_path path'
  end.

Definition s_completeDeviceInfo (d : UsbBulkDeviceInfo) : UsbBulkDeviceInfo :=
  let display :=
    match m_product d, m_manufacturer d with
    | _ :: _, _ => m_product d
    | [], _ :: _ => m_manufacturer d
    | [], [] => str "USB device " ++ hex4 (m_vendor_id d) ++ [chr ":"] ++ hex4 (m_product_id d)
    end in
  let base := s_baseUri (m_vendor_id d) (m_product_id d) in
  let uri :=
    match m_serial_number d, m_port_path d with
    | _ :: _, _ => base ++ [chr "/"] ++ s_percentEncode (m_serial_number d)
    | [], _ :: _ => base ++ str "?port=" ++ join_path (m_port_path d)
    | [], [] => base
    end in
  {| m_vendor_id := m_vendor_id d; m_product_id := m_product_id d;
     m_bus_number := m_bus_number d; m_device_address := m_device_address d;
     m_port_path := m_port_path d; m_manufacturer := m_manufacturer d;
     m_product := m_product d; m_serial_number := m_serial_number d;
     m_display_name := display; m_uri := uri |}.

(** ** Discovery and selection *)

(** [discoverUsbBulkDevices] on the list that the enumeration returned, or its
    error code. *)
Definition discoverUsbBulkDevices (vendor product : Z) (listed : res Z (list UsbBulkDeviceInfo))
    : list UsbBulkDeviceInfo * Z :=
  match listed with
  | Err e => ([], e)
  | Ok ds =>
      (map s_completeDeviceInfo
        (List.filter (fun d => (m_vendor_id d =? vendor) && (m_product_id d =? product)) ds), 0)
  end.

Definition opt_matches {A} `{EqDecision A} (o : option A) (x : A) : bool :=
  match o with None => true | Some y => bool_decide (x = y) end.

Definition usb_matches (sel : UsbSelector) (d : UsbBulkDeviceInfo) : bool :=
  (m_vendor_id d =? sel_vendor_id sel) && (m_product_id d =? sel_product_id sel) &&
  opt_matches (sel_serial_number sel) (m_serial_number d) &&
  opt_matches (sel_port_path sel) (m_port_path d).

(** The loop: the number of matches and the first one. *)
Fixpoint count_matches (sel : UsbSelector) (ds : list UsbBulkDeviceInfo) (count : Z)
    (selected : option UsbBulkDeviceInfo) : Z * option UsbBulkDeviceInfo :=
  match ds with
  | [] => (count, selected)
  | d :: ds' =>
      if usb_matches sel d
      then count_matches sel ds' (count + 1) (match selected with None => Some d | s => s end)
      else count_matches sel ds' count selected
  end.

Definition selectUsbBulkDevice (ds : list UsbBulkDeviceInfo) (uri : text) : UsbBulkSelectionResult :=
  match s_parseSelector uri with
  | None => Build_UsbBulkSelectionResult None InvalidUri 0 0
  | Some sel =>
      let '(count, selected) := count_matches sel ds 0 None in
      if count =? 0 then Build_UsbBulkSelectionResult None DeviceNotFound count 0
      else if count >? 1 then Build_UsbBulkSelectionResult None Ambiguous count 0
      else Build_UsbBulkSelectionResult (option_map s_completeDeviceInfo selected) UsbNone count 0
  end.

Definition resolveUsbBulkDevice (uri : text) (listed : res Z (list UsbBulkDeviceInfo))
    : UsbBulkSelectionResult :=
  match s_parseSelector uri with
  | None => Build_UsbBulkSelectionResult None InvalidUri 0 0
  | Some sel =>
      let '(ds, e) := discoverUsbBulkDevices (sel_vendor_id sel) (sel_product_id sel) listed in
      if negb (e =? 0) then Build_UsbBulkSelectionResult None EnumerationFailed 0 e
      else selectUsbBulkDevice ds uri
  end.

Definition usbDiscoveryErrorMessage (e : UsbDiscoveryError) : string :=
  match e with
  | UsbNone => "no error"
  | InvalidUri => "invalid USB URI"
  | EnumerationFailed => "USB enumeration failed"
  | DeviceNotFound => "USB device not found"
  | Ambiguous => "USB selector matches multiple devices"
  end.

(** ** Parsing what was printed *)

Fixpoint Zrange (lo : Z) (n : nat) : list Z :=
  match n with O => [] | S k => lo :: Zrange (lo + 1) k end.

Lemma Zrange_in lo n z : lo <= z < lo + Z.of_nat n -> In z (Zrange lo n).
Proof.
  revert lo. induction n as [|n IH]; intros lo Hz; [lia|]. cbn [Zrange].
  destruct (Z.eqb_spec z lo) as [->|]; [by left|right]. apply IH. lia.
Qed.

Lemma by_range (P : Z -> bool) lo n :
  forallb P (Zrange lo n) = true -> forall z, lo <= z < lo + Z.of_nat n -> P z = true.
Proof. intros HP z Hz. rewrite forallb_forall in HP. by apply HP, Zrange_in. Qed.

Definition text_eqb (a b : text) : bool := bool_decide (a = b).

Lemma starts_with_app p t : starts_with (p ++ t) p = true.
Proof. induction p as [|c p IH]; [done|]. cbn. by rewrite Z.eqb_refl. Qed.

Lemma break_none stop t : forallb (fun c => negb (stop c)) t = true -> break stop t = (t, None).
Proof.
  induction t as [|c t IH]; [done|]. cbn. intros [Hc%negb_true_iff Ht]%andb_prop.
  by rewrite Hc, IH.
Qed.

Lemma break_app stop a c t :
  forallb (fun c => negb (stop c)) a = true -> stop c = true ->
  break stop (a ++ c :: t) = (a, Some (c :: t)).
Proof.
  intros Ha Hc. induction a as [|x a IH]; cbn in *; [by rewrite Hc|].
  apply andb_prop in Ha as [Hx%negb_true_iff Ha]. by rewrite Hx, IH.
Qed.

(** The four digits of a 16-bit identifier. *)
Lemma hex4_facts v : 0 < v < 65536 ->
  s_parseHex16 (hex4 v) = Some v /\
  forallb (fun c => negb (c =? chr ":")) (hex4 v) = true /\
  forallb (fun c => negb (is_separator c)) (hex4 v) = true.
Proof.
  intros Hv.
  pose proof (by_range (fun v =>
    match s_parseHex16 (hex4 v) with Some w => w =? v | None => false end &&
    forallb (fun c => negb (c =? chr ":") && negb (is_separator c)) (hex4 v))
    1 (Pos.to_nat 65535) ltac:(vm_compute; reflexivity) v ltac:(lia)) as H.
  cbv beta in H. apply andb_prop in H as [H1 H2].
  destruct (s_parseHex16 (hex4 v)) as [w|]; [|done]. apply Z.eqb_eq in H1 as ->.
  split; [done|]. rewrite !forallb_forall in *.
  split; intros c Hc; by apply H2, andb_prop in Hc as [? ?].
Qed.

Lemma parse_ids_printed vid pid : 0 < vid < 65536 -> 0 < pid < 65536 ->
  parse_ids (hex4 vid ++ [chr ":"] ++ hex4 pid) = Some (vid, pid).
Proof.
  intros Hv Hp. destruct (hex4_facts vid Hv) as (Hpv & Hcv & _).
  destruct (hex4_facts pid Hp) as (Hpp & _ & _).
  unfold parse_ids. change (hex4 vid ++ [chr ":"] ++ hex4 pid) with (hex4 vid ++ chr ":" :: hex4 pid).
  rewrite (break_app (Z.eqb (chr ":"))); [|rewrite forallb_forall in *; intros c Hc;
    rewrite Z.eqb_sym; by apply Hcv|done].
  cbn [tail]. rewrite Hpv, Hpp. destruct (hex4 vid ++ chr ":" :: hex4 pid) eqn:E; [|done].
  by destruct (hex4 vid).
Qed.

Definition serial_ok (s : text) : Prop := Forall (fun c => 0 < c < 256) s.
Definition path_ok (p : list Z) : Prop := Forall (fun v => 0 < v < 256) p.

Lemma encode_char_facts c rest : 0 < c < 256 ->
  percentDecode_loop (encode_char c ++ rest) = option_map (cons c) (percentDecode_loop rest) /\
  forallb (fun c => negb (chr "?" =? c)) (encode_char c) = true.
Proof.
  intros Hc.
  pose proof (by_range (fun c =>
    forallb (fun c => negb (chr "?" =? c)) (encode_char c) &&
    match encode_char c with
    | [a] => (a =? c) && negb (a =? chr "%")
    | [p; h; l] =>
        (p =? chr "%") && match s_hexDigit h, s_hexDigit l with
        | Some x, Some y => Z.lor (Z.shiftl x 4) y =? c
        | _, _ => false end
    | _ => false
    end) 1 255 ltac:(vm_compute; reflexivity) c ltac:(lia)) as H.
  cbv beta in H. apply andb_prop in H as [Hq H]. split; [|done]. clear Hq.
  destruct (encode_char c) as [|p [|h [|l [|]]]]; try done; cbn [app percentDecode_loop].
  - apply andb_prop in H as [->%Z.eqb_eq Hp]. by rewrite Hp.
  - apply andb_prop in H as [->%Z.eqb_eq H]. rewrite Z.eqb_refl. cbn [negb].
    destruct (s_hexDigit h), (s_hexDigit l); try done. apply Z.eqb_eq in H. rewrite H.
    by rewrite (proj2 (Z.eqb_neq c 0)) by lia.
Qed.

Lemma percentDecode_loop_encode s : serial_ok s -> percentDecode_loop (s_percentEncode s) = Some s.
Proof.
  unfold s_percentEncode. induction 1 as [|c s Hc _ IH]; [done|]. cbn [map concat].
  rewrite (proj1 (encode_char_facts c _ Hc)), IH. done.
Qed.

Lemma percentDecode_encode s : s <> [] -> serial_ok s -> s_percentDecode (s_percentEncode s) = Some s.
Proof. intros Hn Hs. unfold s_percentDecode. rewrite percentDecode_loop_encode by done. by destruct s. Qed.

Lemma percentEncode_no_query s : serial_ok s ->
  break (Z.eqb (chr "?")) (s_percentEncode s) = (s_percentEncode s, None).
Proof.
  intros Hs. apply break_none. unfold s_percentEncode. induction Hs as [|c s Hc _ IH]; [done|].
  cbn [map concat]. rewrite forallb_app, IH, (proj2 (encode_char_facts c [] Hc)). done.
Qed.

Lemma to_string8_facts v : 0 < v < 256 ->
  from_chars 10 (to_string8 v) = Some (v, []) /\
  forallb (fun c => negb (chr "." =? c)) (to_string8 v) = true.
Proof.
  intros Hv. pose proof (by_range (fun v =>
    match from_chars 10 (to_string8 v) with Some (w, []) => w =? v | _ => false end &&
    forallb (fun c => negb (chr "." =? c)) (to_string8 v))
    1 255 ltac:(vm_compute; reflexivity) v ltac:(lia)) as H.
  cbv beta in H. apply andb_prop in H as [H ?]. split; [|done].
  destruct (from_chars 10 (to_string8 v)) as [[w []]|]; try done. by apply Z.eqb_eq in H as ->.
Qed.

Lemma to_string8_cons v : exists c t, to_string8 v = c :: t.
Proof. unfold to_string8. destruct (v >=? 100), (v >=? 10); cbn; eauto. Qed.

Lemma parsePortPath_last k v acc : 0 < v < 256 ->
  parsePortPath_loop (S k) (to_string8 v) acc = Some (acc ++ [v]).
Proof.
  intros Hv. destruct (to_string8_facts v Hv) as [Hd Hdot].
  pose proof (break_none _ _ Hdot) as Hb.
  destruct (to_string8_cons v) as (c & t & Hc). rewrite Hc in *. cbn [parsePortPath_loop].
  rewrite Hb, Hd. by rewrite (proj2 (Z.eqb_neq v 0)), Z.gtb_ltb, (proj2 (Z.ltb_ge 255 v)) by lia.
Qed.

Lemma parsePortPath_component k v t acc : 0 < v < 256 ->
  parsePortPath_loop (S k) (to_string8 v ++ chr "." :: t) acc = parsePortPath_loop k t (acc ++ [v]).
Proof.
  intros Hv. destruct (to_string8_facts v Hv) as [Hd Hdot].
  pose proof (break_app (Z.eqb (chr ".")) _ _ t Hdot (Z.eqb_refl _)) as Hb.
  destruct (to_string8_cons v) as (c & l & Hc). rewrite Hc in *. cbn [app parsePortPath_loop] in *.
  rewrite Hb, Hd. by rewrite (proj2 (Z.eqb_neq v 0)), Z.gtb_ltb, (proj2 (Z.ltb_ge 255 v)) by lia.
Qed.

Lemma parsePortPath_loop_join path : forall fuel acc dot,
  path_ok path -> path <> [] -> dot = [] \/ dot = [chr "."] ->
  (length (join_path path ++ dot) <= fuel)%nat ->
  parsePortPath_loop fuel (join_path path ++ dot) acc = Some (acc ++ path).
Proof.
  induction path as [|v path IH]; intros fuel acc dot Hok Hn Hdot Hf; [done|].
  apply Forall_cons_1 in Hok as [Hv Hok].
  destruct (to_string8_cons v) as (c & t & Hc). destruct path as [|w path].
  - cbn [join_path] in *. rewrite length_app, Hc in Hf. cbn [length] in Hf.
    destruct fuel as [|k]; [lia|].
    destruct Hdot as [-> | ->]; [rewrite app_nil_r; by apply parsePortPath_last|].
    rewrite parsePortPath_component by done. by destruct k.
  - change (join_path (v :: w :: path)) with (to_string8 v ++ chr "." :: join_path (w :: path)) in *.
    rewrite <- app_assoc in *. cbn [app] in *. rewrite length_app, Hc in Hf. cbn [length] in Hf.
    destruct fuel as [|k]; [lia|]. rewrite parsePortPath_component by done.
    rewrite IH by (done || lia). by rewrite <- app_assoc.
Qed.

Lemma parsePortPath_join path : path <> [] -> path_ok path -> s_parsePortPath (join_path path) = Some path.
Proof.
  intros Hn Hok. unfold s_parsePortPath.
  pose proof (parsePortPath_loop_join path (length (join_path path)) [] [] Hok Hn) as H.
  rewrite app_nil_r in H. rewrite H by auto. by destruct path.
Qed.

(** What identifies a device: its serial number, else its port path. *)
Definition device_ok (d : UsbBulkDeviceInfo) : Prop :=
  0 < m_vendor_id d < 65536 /\ 0 < m_product_id d < 65536 /\
  serial_ok (m_serial_number d) /\ path_ok (m_port_path d).

Definition selector_of (d : UsbBulkDeviceInfo) : UsbSelector :=
  match m_serial_number d, m_port_path d with
  | _ :: _, _ => Build_UsbSelector (m_vendor_id d) (m_product_id d) (Some (m_serial_number d)) None
  | [], _ :: _ => Build_UsbSelector (m_vendor_id d) (m_product_id d) None (Some (m_port_path d))
  | [], [] => Build_UsbSelector (m_vendor_id d) (m_product_id d) None None
  end.

Lemma parseSelector_printed vid pid suffix :
  0 < vid < 65536 -> 0 < pid < 65536 ->
  match suffix with [] => True | c :: _ => is_separator c = true end ->
  s_parseSelector (s_baseUri vid pid ++ suffix) =
  match suffix with
  | [] => Some (Build_UsbSelector vid pid None None)
  | separator :: value =>
      if separator =? chr "/" then
        match snd (break (Z.eqb (chr "?")) value), s_percentDecode value with
        | None, Some serial => Some (Build_UsbSelector vid pid (Some serial) None)
        | _, _ => None
        end
      else if negb (starts_with value (str "port=")) then None
      else match s_parsePortPath (drop 5 value) with
      | None => None
      | Some path => Some (Build_UsbSelector vid pid None (Some path))
      end
  end.
Proof.
  intros Hv Hp Hs. unfold s_parseSelector, s_baseUri. rewrite <- app_assoc, starts_with_app.
  cbn [negb]. rewrite (drop_app_length' _ _ 6) by done.
  assert (forallb (fun c => negb (is_separator c)) (hex4 vid ++ [chr ":"] ++ hex4 pid) = true) as Hsep.
  { rewrite !forallb_app, (proj2 (proj2 (hex4_facts vid Hv))), (proj2 (proj2 (hex4_facts pid Hp))). done. }
  replace ((hex4 vid ++ [chr ":"] ++ hex4 pid) ++ suffix) with
    ((hex4 vid ++ [chr ":"] ++ hex4 pid) ++ suffix) by done.
  destruct suffix as [|c value].
  - rewrite app_nil_r, break_none by done. by rewrite parse_ids_printed.
  - rewrite break_app by done. rewrite parse_ids_printed by done. done.
Qed.

Lemma complete_uri_selector d : device_ok d ->
  s_parseSelector (m_uri (s_completeDeviceInfo d)) = Some (selector_of d).
Proof.
  intros (Hv & Hp & Hs & Hpath). unfold s_completeDeviceInfo, selector_of. cbn [m_uri].
  destruct (m_serial_number d) as [|c s] eqn:Es; [destruct (m_port_path d) as [|v p] eqn:Ep|].
  - pose proof (parseSelector_printed _ _ [] Hv Hp I) as H. by rewrite app_nil_r in H.
  - change (str "?port=" ++ join_path (v :: p)) with (chr "?" :: (str "port=" ++ join_path (v :: p))).
    rewrite parseSelector_printed by done. change (chr "?" =? chr "/") with false.
    rewrite starts_with_app. cbn [negb]. rewrite (drop_app_length' _ _ 5) by done.
    by rewrite parsePortPath_join.
  - change ([chr "/"] ++ s_percentEncode (c :: s)) with (chr "/" :: s_percentEncode (c :: s)).
    rewrite parseSelector_printed by done. rewrite Z.eqb_refl.
    rewrite percentEncode_no_query, percentDecode_encode by done. done.
Qed.

(** ** Selection *)

Lemma count_matches_spec sel ds : forall n s,
  count_matches sel ds n s =
  (n + Z.of_nat (length (List.filter (usb_matches sel) ds)),
   match s with Some _ => s | None => head (List.filter (usb_matches sel) ds) end).
Proof.
  induction ds as [|d ds IH]; intros n s; cbn [count_matches List.filter].
  - by rewrite Z.add_0_r; destruct s.
  - destruct (usb_matches sel d); rewrite IH; [|done].
    cbn [length head]. f_equal; [lia|]. by destruct s.
Qed.

(** The selection returns a device exactly when the URI parses and one device
    of the list matches it, and otherwise the error says whether none or
    several do, with their number. *)
Theorem selectUsbBulkDevice_spec ds uri sel :
  s_parseSelector uri = Some sel ->
  let found := List.filter (usb_matches sel) ds in
  selectUsbBulkDevice ds uri =
  Build_UsbBulkSelectionResult
    (match found with [d] => Some (s_completeDeviceInfo d) | _ => None end)
    (match found with [] => DeviceNotFound | [_] => UsbNone | _ => Ambiguous end)
    (Z.of_nat (length found)) 0.
Proof.
  intros Hp found. unfold selectUsbBulkDevice. rewrite Hp, count_matches_spec.
  fold found. rewrite Z.add_0_l. destruct found as [|d [|e l]]; try done.
  cbn [length]. rewrite (proj2 (Z.eqb_neq _ _)) by lia.
  by rewrite Z.gtb_ltb, (proj2 (Z.ltb_lt _ _)) by lia.
Qed.

Definition sample_usb : UsbBulkDeviceInfo :=
  {| m_vendor_id := 12259; m_product_id := 22348; m_bus_number := 1; m_device_address := 7;
     m_port_path := [1; 12; 3]; m_manufacturer := []; m_product := str "Florid";
     m_serial_number := str "A/1 ?"; m_display_name := []; m_uri := [] |}.

Lemma selectUsbBulkDevice_spec_witness :
  exists sel, s_parseSelector (str "usb://2FE3:574c") = Some sel /\
  sr_error (selectUsbBulkDevice [sample_usb; sample_usb] (str "usb://2FE3:574c")) = Ambiguous.
Proof.
  eexists. split; [vm_compute; reflexivity|].
  rewrite (selectUsbBulkDevice_spec [sample_usb; sample_usb] (str "usb://2FE3:574c")
    (Build_UsbSelector 12259 22348 None None) ltac:(vm_compute; reflexivity)).
  vm_compute. reflexivity.
Defined.

(** The URI that discovery gives a device selects it: it parses to the
    device's identifiers with its serial number or, without one, its port
    path, for serial numbers of any characters but NUL; and in any list that
    holds the device, selecting by that URI finds the device unless another
    one has the same identity. *)
Theorem device_uri_selects ds d :
  device_ok d -> In d ds ->
  s_parseSelector (m_uri (s_completeDeviceInfo d)) = Some (selector_of d) /\
  usb_matches (selector_of d) d = true /\
  (List.filter (usb_matches (selector_of d)) ds = [d] ->
   sr_device (selectUsbBulkDevice ds (m_uri (s_completeDeviceInfo d))) =
     Some (s_completeDeviceInfo d)) /\
  (List.filter (usb_matches (selector_of d)) ds <> [d] ->
   sr_error (selectUsbBulkDevice ds (m_uri (s_completeDeviceInfo d))) = Ambiguous).
Proof.
  intros Hd Hin. pose proof (complete_uri_selector d Hd) as Hp.
  assert (usb_matches (selector_of d) d = true) as Hm.
  { unfold usb_matches, selector_of.
    destruct (m_serial_number d) eqn:Es; [destruct (m_port_path d) eqn:Ep|];
      cbn [sel_vendor_id sel_product_id sel_serial_number sel_port_path opt_matches];
      rewrite ?Es, ?Ep, !Z.eqb_refl, ?bool_decide_eq_true_2 by done; done. }
  pose proof (proj2 (filter_In (usb_matches (selector_of d)) d ds) (conj Hin Hm)) as Hf.
  unfold selectUsbBulkDevice. rewrite Hp, count_matches_spec, Z.add_0_l.
  destruct (List.filter _ ds) as [|x [|y l]]; [done| |].
  - destruct Hf as [-> |[]]. by split_and!.
  - split_and!; [done|done|done|]. intros _. cbn [length].
    rewrite (proj2 (Z.eqb_neq _ _)) by lia.
    by rewrite Z.gtb_ltb, (proj2 (Z.ltb_lt _ _)) by lia.
Qed.

Lemma device_uri_selects_witness :
  device_ok sample_usb /\
  s_parseSelector (m_uri (s_completeDeviceInfo sample_usb)) = Some (selector_of sample_usb).
Proof.
  assert (device_ok sample_usb) as Hok by (repeat split; repeat constructor).
  split; [exact Hok|]. exact (proj1 (device_uri_selects [sample_usb] sample_usb Hok (or_introl eq_refl))).
Defined.

(** [s_parsePortPath] also accepts a path that ends in a dot, so an
    incomplete port path selects the device of the shorter path. *)
Theorem parsePortPath_trailing_dot path :
  path <> [] -> path_ok path ->
  s_parsePortPath (join_path path ++ [chr "."]) = s_parsePortPath (join_path path).
Proof.
  intros Hn Hok. rewrite parsePortPath_join by done. unfold s_parsePortPath.
  rewrite parsePortPath_loop_join by auto. by destruct path.
Qed.

Lemma parsePortPath_trailing_dot_witness :
  s_parsePortPath (str "1.12.") = s_parsePortPath (str "1.12").
Proof.
  apply (parsePortPath_trailing_dot [1; 12]); [discriminate|repeat constructor].
Defined.
