(* ===== verification/DeviceTypes.v ===== *)
(** * Domain types and their wire forms

    [include/florid/DeviceTypes.hpp], [include/florid/ControlTypes.hpp] and the
    conversions at the top of [src/FciWirelinkEndpoint.cpp] (lines 27-300).

    A [float] is its IEEE 754 binary32 bit pattern.  A wire struct is a struct
    of the codec; its members are accessed by the names of the table. *)

From Stdlib Require Import String.
From S2P Require Import Prelude WlcWire WlcSchema WlcCodec WlcRoundtrip FciMessages.

(** ** Floats *)

(** [std::isfinite]: the exponent is not all ones. *)
Definition isfinite (f : Z) : bool := negb (Z.land (Z.shiftr f 23) 255 =? 255).

(** The order of the floats that are not NaN is that of their magnitudes with
    sign; both zeros have key 0. *)
Definition f32_key (f : Z) : Z :=
  let m := Z.land f 2147483647 in if Z.testbit f 31 then - m else m.
Definition f32_lt (a b : Z) : bool := f32_key a <? f32_key b.
Definition f32_ge (a b : Z) : bool := f32_key b <=? f32_key a.

Definition s_allFinite (l : list Z) : bool := forallb isfinite l.

(** ** Members of a wire struct by name *)

Fixpoint index_of (fs : list wlc_field) (name : string) (i : nat) : option nat :=
  match fs with
  | [] => None
  | f :: fs' => if String.eqb (value f) name then Some i else index_of fs' name (S i)
  end.

Definition member (d : wlc_desc) (name : string) (w : wstruct) : option slot :=
  i ← index_of (fields d) name 0; w !! i.

(** [has_name] and the value of a scalar member. *)
Definition wire_int (d : wlc_desc) (name : string) (w : wstruct) : bool * Z :=
  match member d name w with Some (SOpt h (VInt z)) => (h, z) | _ => (false, 0) end.
Definition wire_array (d : wlc_desc) (name : string) (w : wstruct) : bool * list Z :=
  match member d name w with Some (SPacked h l) => (h, l) | _ => (false, []) end.
Definition wire_msg (d : wlc_desc) (name : string) (w : wstruct) : bool * wstruct :=
  match member d name w with Some (SOpt h (VMsg vs)) => (h, vs) | _ => (false, []) end.
Definition wire_text (d : wlc_desc) (name : string) (w : wstruct) : bool * bytes :=
  match member d name w with
  | Some (SOpt h (VSpan data len)) => (h, take (Z.to_nat len) (default [] data))
  | _ => (false, [])
  end.

(** Assigning a member and its [has_] flag. *)
Definition wire_set (d : wlc_desc) (name : string) (s : slot) (w : wstruct) : wstruct :=
  match index_of (fields d) name 0 with Some i => <[i:=s]> w | None => w end.
Definition set_scalar (d : wlc_desc) (name : string) (z : Z) : wstruct -> wstruct :=
  wire_set d name (SOpt true (VInt z)).
Definition set_array (d : wlc_desc) (name : string) (l : list Z) : wstruct -> wstruct :=
  wire_set d name (SPacked true l).

(** ** Versions and enumerations *)

Record Version := { m_major : Z; m_minor : Z; m_patch : Z }.

Definition kSupportedProtocolVersion : Version := {| m_major := 0; m_minor := 0; m_patch := 1 |}.

Inductive FirmwareType := kStandardArm | kMobileArm | kCobotArm | kUnknownFirmware.
#[global] Instance FirmwareType_eq_dec : EqDecision FirmwareType.
Proof. solve_decision. Defined.

(** [FIRMWARE_STANDARD_ARM] = 0, [FIRMWARE_MOBILE_ARM] = 1,
    [FIRMWARE_COBOT_ARM] = 2. *)
Definition s_firmwareType (t : Z) : FirmwareType :=
  if t =? 0 then kStandardArm else if t =? 1 then kMobileArm
  else if t =? 2 then kCobotArm else kUnknownFirmware.

Inductive BusState :=
| kErrorActive | kErrorWarning | kErrorPassive | kBusOff | kStopped | kUnknownBus.

Definition s_busState (v : Z) : BusState :=
  if v =? 0 then kErrorActive else if v =? 1 then kErrorWarning
  else if v =? 2 then kErrorPassive else if v =? 3 then kBusOff
  else if v =? 4 then kStopped else kUnknownBus.

(** The modes are [uint8_t] enumerations; [ARM_MODE_*] are 0..4 and
    [MOTOR_CONTROL_*] 1..4, and a value outside them maps to the first. *)
Definition s_armMode (m : Z) : Z := if (0 <=? m) && (m <=? 4) then m else 0.
Definition s_controlMode (m : Z) : Z := if (1 <=? m) && (m <=? 4) then m else 1.

(** ** Device settings *)

Record TorqueFoldParameters := {
  m_continuous_torque : Z;
  m_peak_torque : Z;
  m_thermal_capacity : Z;
  m_torque_ramp_rate : Z
}.
Record JointLimits := { m_min : Z; m_max : Z }.
Record DeviceSettings := {
  m_firmware_period_us : Z;
  m_gravity_scale : list Z;
  m_torque_fold : list TorqueFoldParameters;
  m_joint_limits : list JointLimits
}.

(** [DeviceSettings{}]. *)
Definition settings0 : DeviceSettings := {|
  m_firmware_period_us := 2000; m_gravity_scale := repeat 0 6;
  m_torque_fold := repeat (Build_TorqueFoldParameters 0 0 0 0) 7;
  m_joint_limits := repeat (Build_JointLimits 0 0) 6 |}.

Definition valid_fold (f : TorqueFoldParameters) : bool :=
  isfinite (m_continuous_torque f) && isfinite (m_peak_torque f) &&
  isfinite (m_thermal_capacity f) && isfinite (m_torque_ramp_rate f) &&
  negb (f32_lt (m_continuous_torque f) 0) &&
  negb (f32_lt (m_peak_torque f) (m_continuous_torque f)) &&
  negb (f32_lt (m_thermal_capacity f) 0) && negb (f32_lt (m_torque_ramp_rate f) 0).

Definition valid_limits (l : JointLimits) : bool :=
  isfinite (m_min l) && isfinite (m_max l) && negb (f32_ge (m_min l) (m_max l)).

Definition s_validSettings (s : DeviceSettings) : bool :=
  negb (m_firmware_period_us s <? 100) && negb (m_firmware_period_us s >? 1000000) &&
  s_allFinite (m_gravity_scale s) &&
  forallb valid_fold (m_torque_fold s) && forallb valid_limits (m_joint_limits s).

(** The arrays have the lengths of the C++ types and hold floats. *)
Definition settings_shape (s : DeviceSettings) : bool :=
  between_u 32 (m_firmware_period_us s) &&
  (length (m_gravity_scale s) =? 6)%nat && forallb (between_u 32) (m_gravity_scale s) &&
  (length (m_torque_fold s) =? 7)%nat &&
  forallb (fun f => between_u 32 (m_continuous_torque f) && between_u 32 (m_peak_torque f) &&
    between_u 32 (m_thermal_capacity f) && between_u 32 (m_torque_ramp_rate f)) (m_torque_fold s) &&
  (length (m_joint_limits s) =? 6)%nat &&
  forallb (fun l => between_u 32 (m_min l) && between_u 32 (m_max l)) (m_joint_limits s).

Definition DSD := device_settings_desc.

(** The loop over the seven arrays of torque parameters. *)
Fixpoint zip_fold (c p t r : list Z) : list TorqueFoldParameters :=
  match c, p, t, r with
  | c0 :: c', p0 :: p', t0 :: t', r0 :: r' =>
      Build_TorqueFoldParameters c0 p0 t0 r0 :: zip_fold c' p' t' r'
  | _, _, _, _ => []
  end.

Definition settings_of_wire (w : wstruct) : DeviceSettings := {|
  m_firmware_period_us := snd (wire_int DSD "firmware_dt_us" w);
  m_gravity_scale := snd (wire_array DSD "gravity_scale" w);
  m_torque_fold := zip_fold (snd (wire_array DSD "torque_continuous" w))
    (snd (wire_array DSD "torque_peak" w)) (snd (wire_array DSD "thermal_capacity" w))
    (snd (wire_array DSD "torque_ramp_rate" w));
  m_joint_limits := zip_with Build_JointLimits (snd (wire_array DSD "joint_limit_min" w))
    (snd (wire_array DSD "joint_limit_max" w))
|}.

Definition s_settingsFromWire (w : wstruct) : option DeviceSettings :=
  if negb (fst (wire_int DSD "firmware_dt_us" w)) || negb (fst (wire_array DSD "gravity_scale" w)) ||
     negb (fst (wire_array DSD "torque_continuous" w)) || negb (fst (wire_array DSD "torque_peak" w)) ||
     negb (fst (wire_array DSD "thermal_capacity" w)) || negb (fst (wire_array DSD "torque_ramp_rate" w)) ||
     negb (fst (wire_array DSD "joint_limit_min" w)) || negb (fst (wire_array DSD "joint_limit_max" w))
  then None
  else let s := settings_of_wire w in if s_validSettings s then Some s else None.

Definition s_settingsToWire (s : DeviceSettings) : wstruct :=
  [SOpt true (VInt (m_firmware_period_us s));
   SPacked true (m_gravity_scale s);
   SPacked true (map m_continuous_torque (m_torque_fold s));
   SPacked true (map m_peak_torque (m_torque_fold s));
   SPacked true (map m_thermal_capacity (m_torque_fold s));
   SPacked true (map m_torque_ramp_rate (m_torque_fold s));
   SPacked true (map m_min (m_joint_limits s));
   SPacked true (map m_max (m_joint_limits s))].

(** ** Telemetry *)

Definition ASD := arm_status_desc.
Definition ADD := arm_diagnostics_desc.

Definition has_all (d : wlc_desc) (w : wstruct) (names : list string) : bool :=
  forallb (fun n => match member d n w with Some s => slot_has s | None => false end) names.

(** [ARM_MODE_PC] = 0 to [ARM_MODE_TELEOP] = 4. *)
Definition s_validArmStatus (w : wstruct) : bool :=
  let mode := snd (wire_int ASD "mode" w) in
  has_all ASD w ["mode"%string] && (0 <=? mode) && (mode <=? 4) &&
  has_all ASD w ["sequence"; "timestamp_us"; "joint_position"; "joint_velocity"; "joint_torque";
    "base_gravity"; "gripper_position"; "gripper_velocity"; "gripper_torque";
    "end_effector_transform"; "external_wrench"; "error_flags"; "last_sdk_timestamp_us"]%string &&
  s_allFinite (snd (wire_array ASD "joint_position" w)) &&
  s_allFinite (snd (wire_array ASD "joint_velocity" w)) &&
  s_allFinite (snd (wire_array ASD "joint_torque" w)) &&
  s_allFinite (snd (wire_array ASD "base_gravity" w)) &&
  isfinite (snd (wire_int ASD "gripper_position" w)) &&
  isfinite (snd (wire_int ASD "gripper_velocity" w)) &&
  isfinite (snd (wire_int ASD "gripper_torque" w)) &&
  s_allFinite (snd (wire_array ASD "end_effector_transform" w)) &&
  s_allFinite (snd (wire_array ASD "external_wrench" w)).

Record ArmState := {
  as_time : Z; as_seq : Z; as_mode : Z; as_source_timestamp_us : Z; as_errors : Z;
  as_q : list Z; as_dq : list Z; as_tau : list Z; as_base_gravity : list Z;
  as_O_T_EE : list Z; as_F_ext : list Z; as_gripper_q : Z; as_gripper_dq : Z; as_gripper_tau : Z
}.
Record FciArmStatusSnapshot := {
  snap_state : ArmState;
  snap_last_sdk_timestamp_us : Z;
  snap_generation : Z
}.

(** The clock reading [s_steadyNowMs()] is an argument; as a [double] it is exact
    below 2^53 milliseconds. *)
Definition s_armStatusFromWire (now : Z) (w : wstruct) (generation : Z) : FciArmStatusSnapshot := {|
  snap_state := {|
    as_time := now;
    as_seq := snd (wire_int ASD "sequence" w);
    as_mode := u32 (snd (wire_int ASD "mode" w));
    as_source_timestamp_us := snd (wire_int ASD "timestamp_us" w);
    as_errors := snd (wire_int ASD "error_flags" w);
    as_q := take 6 (snd (wire_array ASD "joint_position" w));
    as_dq := take 6 (snd (wire_array ASD "joint_velocity" w));
    as_tau := take 6 (snd (wire_array ASD "joint_torque" w));
    as_base_gravity := take 3 (snd (wire_array ASD "base_gravity" w));
    as_O_T_EE := take 16 (snd (wire_array ASD "end_effector_transform" w));
    as_F_ext := take 6 (snd (wire_array ASD "external_wrench" w));
    as_gripper_q := snd (wire_int ASD "gripper_position" w);
    as_gripper_dq := snd (wire_int ASD "gripper_velocity" w);
    as_gripper_tau := snd (wire_int ASD "gripper_torque" w) |};
  snap_last_sdk_timestamp_us := snd (wire_int ASD "last_sdk_timestamp_us" w);
  snap_generation := generation
|}.

Record JointDiagnostics := { jd_healthy : bool; jd_temperature_c : Z; jd_overheated : bool }.
Record ArmDiagnostics := {
  ad_uptime_s : Z; ad_tick_count : Z; ad_mode_entry_ms : Z; ad_bus_healthy : bool;
  ad_bus_state : BusState; ad_tx_error_count : Z; ad_rx_error_count : Z;
  ad_joints : list JointDiagnostics; ad_gripper : JointDiagnostics
}.

(** [(mask & (1 << index)) != 0]. *)
Definition mask_bit (mask : Z) (i : Z) : bool := negb (Z.land mask (Z.shiftl 1 i) =? 0).

Definition s_diagnosticsFromWire (w : wstruct) : option ArmDiagnostics :=
  let temps := snd (wire_array ADD "joint_temperature_c" w) in
  let healthy := snd (wire_int ADD "joint_healthy_mask" w) in
  let overheat := snd (wire_int ADD "overheat_mask" w) in
  if negb (has_all ADD w ["uptime_s"; "tick_count"; "mode_entry_ms"; "bus_healthy"; "bus_state";
       "tx_error_count"; "rx_error_count"; "joint_healthy_mask"; "joint_temperature_c";
       "gripper_healthy"; "gripper_temperature_c"; "overheat_mask"]%string) ||
     negb (s_allFinite temps) || negb (isfinite (snd (wire_int ADD "gripper_temperature_c" w)))
  then None
  else Some {|
    ad_uptime_s := snd (wire_int ADD "uptime_s" w);
    ad_tick_count := snd (wire_int ADD "tick_count" w);
    ad_mode_entry_ms := snd (wire_int ADD "mode_entry_ms" w);
    ad_bus_healthy := negb (snd (wire_int ADD "bus_healthy" w) =? 0);
    ad_bus_state := s_busState (u8 (snd (wire_int ADD "bus_state" w)));
    ad_tx_error_count := u16 (snd (wire_int ADD "tx_error_count" w));
    ad_rx_error_count := u16 (snd (wire_int ADD "rx_error_count" w));
    ad_joints := imap (fun i t => Build_JointDiagnostics
      (mask_bit healthy (Z.of_nat i)) t (mask_bit overheat (Z.of_nat i))) (take 6 temps);
    ad_gripper := Build_JointDiagnostics (negb (snd (wire_int ADD "gripper_healthy" w) =? 0))
      (snd (wire_int ADD "gripper_temperature_c" w)) (negb (Z.land overheat 64 =? 0))
  |}.

(** ** Settings survive the wire form *)

Lemma zip_fold_maps l : zip_fold (map m_continuous_torque l) (map m_peak_torque l)
  (map m_thermal_capacity l) (map m_torque_ramp_rate l) = l.
Proof. induction l as [|[] l IH]; [done|]. cbn. by rewrite IH. Qed.

Lemma zip_limits_maps l : zip_with Build_JointLimits (map m_min l) (map m_max l) = l.
Proof. induction l as [|[] l IH]; [done|]. cbn. by rewrite IH. Qed.

Lemma settings_of_to_wire s : settings_of_wire (s_settingsToWire s) = s.
Proof.
  unfold settings_of_wire, s_settingsToWire, wire_int, wire_array, member. simpl.
  rewrite zip_fold_maps, zip_limits_maps. by destruct s.
Qed.

Lemma settings_roundtrip s : s_validSettings s = true -> s_settingsFromWire (s_settingsToWire s) = Some s.
Proof.
  intros Hv. unfold s_settingsFromWire. rewrite settings_of_to_wire, Hv. reflexivity.
Qed.

Lemma settings_valid_wire s : settings_shape s = true -> valid DSD (s_settingsToWire s) = true.
Proof.
  unfold settings_shape. rewrite !andb_true_iff. intros [[[[[[Hp Hg] Hgf] Hf] Hff] Hl] Hlf].
  apply Nat.eqb_eq in Hg, Hf, Hl.
  assert (forall {A} (p : A -> Z) (q : A -> bool) l, forallb q l = true ->
    (forall x, q x = true -> between_u 32 (p x) = true) ->
    forallb (between_u 32) (map p l) = true) as Hmap.
  { intros A p q l Hq Hx. rewrite forallb_forall in Hq |- *. intros z (x & <- & Hin)%in_map_iff. auto. }
  cbn [valid DSD device_settings_desc valid_fields s_settingsToWire valid_slot valid_value card kind
    packed_count element].
  rewrite !length_map, Hg, Hf, Hl, Hp. change (8 * 4) with 32. rewrite Hgf.
  rewrite !(Hmap _ _ _ _ Hff) by (intros x; rewrite !andb_true_iff; tauto).
  rewrite !(Hmap _ _ _ _ Hlf) by (intros x; rewrite !andb_true_iff; tauto). done.
Qed.
