(* ===== verification/Endpoint.v ===== *)
(** * The device endpoint: data

    [include/florid/detail/FciWirelinkEndpoint.hpp] and the static helpers of
    [src/FciWirelinkEndpoint.cpp]: the eight operation slots, the serialized
    queue of RPCs and the control lease.  One record holds what [m_mutex]
    protects; the operations of the class are functions on it
    ([EndpointOps.v]) and its state machine a step relation ([EndpointInv.v]).

    Arguments stand for what is read from elsewhere: the clock, whether a
    firmware upgrade is active ([m_upgrade.active()]) and the result of the
    generated [*_async] call that admits an RPC. *)

From Stdlib Require Import String.
From S2P Require Import Prelude WlcWire WlcSchema WlcCodec FciMessages DeviceTypes.

(** ** Data *)

Inductive FciEndpointStatus :=
| kOk | kNotReady | kQueueFull | kBusy | kInvalidArgument | kUnsupported | kNoLease | kNoData
| kCodecError | kLinkError | kTimeout | kCancelled | kDomainErrorStatus | kInternalError.

Inductive FciOperationState :=
| kUnknown | kQueued | kLinkPending | kWaitingResponse | kCompleted | kTimedOut | kOpCancelled
| kLinkFailed | kDomainError.

Inductive FciControlLeaseState :=
| kReleased | kAcquireQueued | kAcquiring | kHeld | kRenewQueued | kRenewing | kReleaseQueued
| kReleasing | kExpired | kFailed.

Inductive RpcKind :=
| kNone | kAcquireLease | kReleaseLease | kGetDeviceInfo | kSetDeviceInfo | kGetDeviceSettings
| kSetDeviceSettings | kSetArmControlMode | kSetGripperControlMode | kSetArmMode | kHome | kSetZero
| kClearError | kClearFaults | kEmergencyStop | kMotorRegisterRead | kMotorRegisterWrite
| kMotorStoreParameters | kMotorSetZero.

#[global] Instance FciEndpointStatus_eq_dec : EqDecision FciEndpointStatus.
Proof. solve_decision. Defined.
#[global] Instance FciOperationState_eq_dec : EqDecision FciOperationState.
Proof. solve_decision. Defined.
#[global] Instance FciControlLeaseState_eq_dec : EqDecision FciControlLeaseState.
Proof. solve_decision. Defined.
#[global] Instance RpcKind_eq_dec : EqDecision RpcKind.
Proof. solve_decision. Defined.

Record FciControlLeaseSnapshot := {
  l_state : FciControlLeaseState;
  l_status : FciEndpointStatus;
  l_domain_status : Z;
  l_token : Z;
  l_granted_timeout_ms : Z
}.
Definition lease0 : FciControlLeaseSnapshot := {|
  l_state := kReleased; l_status := kNoLease; l_domain_status := 0; l_token := 0;
  l_granted_timeout_ms := 0 |}.

Record OperationRequest := {
  r_device_settings : DeviceSettings;
  r_custom_name : bytes;
  r_lease_token : Z;
  r_requested_lease_timeout_ms : Z;
  r_joint_id : Z;
  r_register_id : Z;
  r_arm_mode : Z;
  r_control_mode : Z;
  r_value : Z
}.
Definition request0 : OperationRequest := {|
  r_device_settings := settings0; r_custom_name := []; r_lease_token := 0;
  r_requested_lease_timeout_ms := 0; r_joint_id := 0; r_register_id := 0; r_arm_mode := 0;
  r_control_mode := 1; r_value := 0 |}.

(** [FixedDeviceInfo] with [m_valid]; an invalid one is [None] in a slot. *)
Record FixedDeviceInfo := {
  fi_protocol_version : Version;
  fi_firmware_version : Version;
  fi_board_name : bytes;
  fi_custom_name : bytes;
  fi_serial_number : bytes;
  fi_firmware_type : FirmwareType;
  fi_command_capabilities : Z
}.

Record OperationSlot := {
  o_admitted : bool;
  o_request_id : Z;
  o_timeout_ms : Z;
  o_submitted_at_ms : Z;
  o_request : OperationRequest;
  o_kind : RpcKind;
  o_state : FciOperationState;
  o_status : FciEndpointStatus;
  o_domain_status : Z;
  o_link_status : Z;
  o_device_info : option FixedDeviceInfo;
  o_device_settings : option DeviceSettings;
  o_motor_register : option Z;
  o_internal : bool;
  o_used : bool
}.
Definition slot0 : OperationSlot := {|
  o_admitted := false; o_request_id := 0; o_timeout_ms := 0; o_submitted_at_ms := 0;
  o_request := request0; o_kind := kNone; o_state := kUnknown; o_status := kNoData;
  o_domain_status := 0; o_link_status := 0; o_device_info := None; o_device_settings := None;
  o_motor_register := None; o_internal := false; o_used := false |}.

Record FciWirelinkEndpoint := {
  m_operations : list OperationSlot;
  m_active_operation : option nat;
  m_next_request_id : Z;
  m_lease : FciControlLeaseSnapshot;
  m_lease_renew_at_ms : Z;
  m_lease_expire_at_ms : Z;
  m_lease_requested_timeout_ms : Z;
  m_running : bool;
  m_command_capabilities : Z
}.

Definition s_kOperationCapacity : nat := 8.
Definition s_kPublicOperationCapacity : nat := 7.
Definition s_kMaximumRelativeTimeout : Z := 2147483647.

(** The object after [initialize]. *)
Definition endpoint0 : FciWirelinkEndpoint := {|
  m_operations := repeat slot0 s_kOperationCapacity; m_active_operation := None;
  m_next_request_id := 1; m_lease := lease0; m_lease_renew_at_ms := 0;
  m_lease_expire_at_ms := 0; m_lease_requested_timeout_ms := 0; m_running := false;
  m_command_capabilities := 0 |}.

(** Assignments. *)
Definition with_ops (ops : list OperationSlot) (e : FciWirelinkEndpoint) : FciWirelinkEndpoint := {|
  m_operations := ops; m_active_operation := m_active_operation e;
  m_next_request_id := m_next_request_id e; m_lease := m_lease e;
  m_lease_renew_at_ms := m_lease_renew_at_ms e; m_lease_expire_at_ms := m_lease_expire_at_ms e;
  m_lease_requested_timeout_ms := m_lease_requested_timeout_ms e; m_running := m_running e;
  m_command_capabilities := m_command_capabilities e |}.
Definition with_active (a : option nat) (e : FciWirelinkEndpoint) : FciWirelinkEndpoint := {|
  m_operations := m_operations e; m_active_operation := a;
  m_next_request_id := m_next_request_id e; m_lease := m_lease e;
  m_lease_renew_at_ms := m_lease_renew_at_ms e; m_lease_expire_at_ms := m_lease_expire_at_ms e;
  m_lease_requested_timeout_ms := m_lease_requested_timeout_ms e; m_running := m_running e;
  m_command_capabilities := m_command_capabilities e |}.
Definition with_lease (l : FciControlLeaseSnapshot) (e : FciWirelinkEndpoint) : FciWirelinkEndpoint := {|
  m_operations := m_operations e; m_active_operation := m_active_operation e;
  m_next_request_id := m_next_request_id e; m_lease := l;
  m_lease_renew_at_ms := m_lease_renew_at_ms e; m_lease_expire_at_ms := m_lease_expire_at_ms e;
  m_lease_requested_timeout_ms := m_lease_requested_timeout_ms e; m_running := m_running e;
  m_command_capabilities := m_command_capabilities e |}.
Definition with_times (renew expire requested : Z) (e : FciWirelinkEndpoint) : FciWirelinkEndpoint := {|
  m_operations := m_operations e; m_active_operation := m_active_operation e;
  m_next_request_id := m_next_request_id e; m_lease := m_lease e;
  m_lease_renew_at_ms := renew; m_lease_expire_at_ms := expire;
  m_lease_requested_timeout_ms := requested; m_running := m_running e;
  m_command_capabilities := m_command_capabilities e |}.
Definition with_next (n : Z) (e : FciWirelinkEndpoint) : FciWirelinkEndpoint := {|
  m_operations := m_operations e; m_active_operation := m_active_operation e;
  m_next_request_id := n; m_lease := m_lease e;
  m_lease_renew_at_ms := m_lease_renew_at_ms e; m_lease_expire_at_ms := m_lease_expire_at_ms e;
  m_lease_requested_timeout_ms := m_lease_requested_timeout_ms e; m_running := m_running e;
  m_command_capabilities := m_command_capabilities e |}.
Definition with_running (r : bool) (e : FciWirelinkEndpoint) : FciWirelinkEndpoint := {|
  m_operations := m_operations e; m_active_operation := m_active_operation e;
  m_next_request_id := m_next_request_id e; m_lease := m_lease e;
  m_lease_renew_at_ms := m_lease_renew_at_ms e; m_lease_expire_at_ms := m_lease_expire_at_ms e;
  m_lease_requested_timeout_ms := m_lease_requested_timeout_ms e; m_running := r;
  m_command_capabilities := m_command_capabilities e |}.
Definition with_caps (c : Z) (e : FciWirelinkEndpoint) : FciWirelinkEndpoint := {|
  m_operations := m_operations e; m_active_operation := m_active_operation e;
  m_next_request_id := m_next_request_id e; m_lease := m_lease e;
  m_lease_renew_at_ms := m_lease_renew_at_ms e; m_lease_expire_at_ms := m_lease_expire_at_ms e;
  m_lease_requested_timeout_ms := m_lease_requested_timeout_ms e; m_running := m_running e;
  m_command_capabilities := c |}.

Definition set_slot (i : nat) (s : OperationSlot) (e : FciWirelinkEndpoint) : FciWirelinkEndpoint :=
  with_ops (<[i:=s]> (m_operations e)) e.
Definition lease_state (st : FciControlLeaseState) (l : FciControlLeaseSnapshot)
    : FciControlLeaseSnapshot := {|
  l_state := st; l_status := l_status l; l_domain_status := l_domain_status l;
  l_token := l_token l; l_granted_timeout_ms := l_granted_timeout_ms l |}.
Definition lease_queued (st : FciControlLeaseState) (l : FciControlLeaseSnapshot)
    : FciControlLeaseSnapshot := {|
  l_state := st; l_status := kOk; l_domain_status := l_domain_status l;
  l_token := l_token l; l_granted_timeout_ms := l_granted_timeout_ms l |}.
(** The lease is lost: the token is dropped. *)
Definition lease_lost (st : FciControlLeaseState) (status : FciEndpointStatus) (domain : Z)
    : FciControlLeaseSnapshot := {|
  l_state := st; l_status := status; l_domain_status := domain; l_token := 0;
  l_granted_timeout_ms := 0 |}.
Definition op_state (st : FciOperationState) (s : OperationSlot) : OperationSlot := {|
  o_admitted := o_admitted s; o_request_id := o_request_id s; o_timeout_ms := o_timeout_ms s;
  o_submitted_at_ms := o_submitted_at_ms s; o_request := o_request s; o_kind := o_kind s;
  o_state := st; o_status := o_status s; o_domain_status := o_domain_status s;
  o_link_status := o_link_status s; o_device_info := o_device_info s;
  o_device_settings := o_device_settings s; o_motor_register := o_motor_register s;
  o_internal := o_internal s; o_used := o_used s |}.
Definition op_admitted (s : OperationSlot) : OperationSlot := {|
  o_admitted := true; o_request_id := o_request_id s; o_timeout_ms := o_timeout_ms s;
  o_submitted_at_ms := o_submitted_at_ms s; o_request := o_request s; o_kind := o_kind s;
  o_state := o_state s; o_status := o_status s; o_domain_status := o_domain_status s;
  o_link_status := o_link_status s; o_device_info := o_device_info s;
  o_device_settings := o_device_settings s; o_motor_register := o_motor_register s;
  o_internal := o_internal s; o_used := o_used s |}.
Definition op_cancelled (s : OperationSlot) : OperationSlot := {|
  o_admitted := o_admitted s; o_request_id := o_request_id s; o_timeout_ms := o_timeout_ms s;
  o_submitted_at_ms := o_submitted_at_ms s; o_request := o_request s; o_kind := o_kind s;
  o_state := kOpCancelled; o_status := kCancelled; o_domain_status := o_domain_status s;
  o_link_status := o_link_status s; o_device_info := o_device_info s;
  o_device_settings := o_device_settings s; o_motor_register := o_motor_register s;
  o_internal := o_internal s; o_used := o_used s |}.

(** ** Time and status helpers *)

(** [s_queueRemaining]: the age is a signed 32-bit difference. *)
Definition s_queueRemaining (now submitted timeout : Z) : Z :=
  let age := swrap 32 (now - submitted) in
  if age <=? 0 then timeout else timeout - Z.min timeout age.

Definition s_until (now target : Z) : Z :=
  let remaining := swrap 32 (target - now) in
  if remaining <=? 0 then 0 else remaining.

Definition s_terminal (s : FciOperationState) : bool :=
  match s with
  | kCompleted | kTimedOut | kOpCancelled | kLinkFailed | kDomainError => true
  | _ => false
  end.

(** The result codes of the link, by name. *)
Inductive wl_result :=
| WL_OK | WL_ERR_QUEUE_FULL | WL_ERR_NO_SPACE | WL_ERR_BUSY | WL_ERR_WOULD_BLOCK
| WL_ERR_INVALID_ARG | WL_ERR_NOT_SUPPORTED | WL_ERR_NO_DATA | WL_ERR_CANCELLED
| WL_ERR_NOT_INITIALIZED | WL_ERR_INVALID_STATE | WL_ERR_CORRUPT_PAYLOAD | WL_ERR_IO
| WL_ERR_BUF_TOO_SMALL | WL_ERR_NOT_FOUND | WL_ERR_REENTRANT | WL_ERR_TIMEOUT | WL_ERR_NO_MEM
| WL_ERR_OTHER.

#[global] Instance wl_result_eq_dec : EqDecision wl_result.
Proof. solve_decision. Defined.

Definition s_endpointStatus (r : wl_result) : FciEndpointStatus :=
  match r with
  | WL_OK => kOk
  | WL_ERR_QUEUE_FULL | WL_ERR_NO_SPACE => kQueueFull
  | WL_ERR_BUSY | WL_ERR_WOULD_BLOCK => kBusy
  | WL_ERR_INVALID_ARG => kInvalidArgument
  | WL_ERR_NOT_SUPPORTED => kUnsupported
  | WL_ERR_NO_DATA => kNoData
  | WL_ERR_CANCELLED => kCancelled
  | WL_ERR_NOT_INITIALIZED | WL_ERR_INVALID_STATE => kNotReady
  | WL_ERR_CORRUPT_PAYLOAD | WL_ERR_IO | WL_ERR_BUF_TOO_SMALL | WL_ERR_NOT_FOUND
  | WL_ERR_REENTRANT | WL_ERR_TIMEOUT | WL_ERR_NO_MEM | WL_ERR_OTHER => kLinkError
  end.
