(* ===== verification/EndpointOps.v ===== *)
(** * The device endpoint: operations

    The member functions of [src/FciWirelinkEndpoint.cpp] as functions on the
    record of [Endpoint.v].  A function that reports a value returns it with
    the new state.

    Arguments stand for what the class reads elsewhere: clock readings,
    [m_upgrade.active()] and the result of the generated [*_async] call that
    admits an RPC to the link (it never calls back from within). *)

From Stdlib Require Import String.
From S2P Require Import Prelude WlcWire WlcSchema WlcCodec WlcValue FciMessages DeviceTypes Endpoint.

(** ** The queue of operations *)

Fixpoint find_index (p : OperationSlot -> bool) (l : list OperationSlot) (i : nat) : option nat :=
  match l with
  | [] => None
  | s :: l' => if p s then Some i else find_index p l' (S i)
  end.

Definition s_findSlot (request_id : Z) (e : FciWirelinkEndpoint) : option nat :=
  find_index (fun s => o_used s && (o_request_id s =? request_id)) (m_operations e) 0.

Definition is_queued (s : OperationSlot) : bool := o_used s && bool_decide (o_state s = kQueued).

Fixpoint oldest_queued (l : list OperationSlot) (i : nat) (selected : option nat) (oldest : Z)
    : option nat :=
  match l with
  | [] => selected
  | s :: l' =>
      if is_queued s && (o_request_id s <? oldest)
      then oldest_queued l' (S i) (Some i) (o_request_id s)
      else oldest_queued l' (S i) selected oldest
  end.

Definition s_findQueuedSlot (e : FciWirelinkEndpoint) : option nat :=
  oldest_queued (m_operations e) 0 None (2 ^ 64 - 1).

Definition s_allocateSlot (internal : bool) (e : FciWirelinkEndpoint) : option nat :=
  let ops := m_operations e in
  let back := (length ops - 1)%nat in
  if internal && negb (o_used (default slot0 (ops !! back))) then Some back
  else
    let limit := if internal then length ops else s_kPublicOperationCapacity in
    find_index (fun s => negb (o_used s)) (take limit ops) 0.

Record FciOperationResult := {
  res_request_id : Z;
  res_state : FciOperationState;
  res_status : FciEndpointStatus;
  res_domain_status : Z;
  res_link_status : Z
}.
Definition s_result (s : OperationSlot) : FciOperationResult := {|
  res_request_id := o_request_id s; res_state := o_state s; res_status := o_status s;
  res_domain_status := o_domain_status s; res_link_status := o_link_status s |}.

(** The RPCs that a firmware upgrade does not block. *)
Definition upgrade_safe (k : RpcKind) : bool :=
  match k with kGetDeviceInfo | kGetDeviceSettings | kEmergencyStop => true | _ => false end.

Definition queued_op (clock id : Z) (kind : RpcKind) (timeout : Z) (request : OperationRequest)
    (internal : bool) : OperationSlot := {|
  o_admitted := false; o_request_id := id; o_timeout_ms := timeout; o_submitted_at_ms := clock;
  o_request := request; o_kind := kind; o_state := kQueued; o_status := kOk;
  o_domain_status := 0; o_link_status := 0; o_device_info := None; o_device_settings := None;
  o_motor_register := None; o_internal := internal; o_used := true |}.

(** An acquisition that carries a token renews. *)
Definition renews (internal : bool) (request : OperationRequest) : bool :=
  internal || negb (r_lease_token request =? 0).

Definition FciSubmitResult : Type := FciEndpointStatus * Z.

(** [upgrading]: [m_upgrade.active()]; [clock]: [s_nowMs()]. *)
Definition s_submit (upgrading : bool) (clock : Z) (kind : RpcKind) (timeout : Z)
    (request : OperationRequest) (internal : bool) (e : FciWirelinkEndpoint)
    : FciSubmitResult * FciWirelinkEndpoint :=
  if upgrading && negb (upgrade_safe kind) then ((kBusy, 0), e)
  else if negb (m_running e) then ((kNotReady, 0), e)
  else
    match s_allocateSlot internal e with
    | None => ((kQueueFull, 0), e)
    | Some i =>
        let id := m_next_request_id e in
        let next := u64 (id + 1) in
        let e1 := with_next (if next =? 0 then 1 else next) e in
        let e2 := set_slot i (queued_op clock id kind timeout request internal) e1 in
        let e3 :=
          match kind with
          | kAcquireLease =>
              with_lease (lease_queued (if renews internal request then kRenewQueued
                else kAcquireQueued) (m_lease e2)) e2
          | kReleaseLease => with_lease (lease_queued kReleaseQueued (m_lease e2)) e2
          | _ => e2
          end in
        ((kOk, id), e3)
    end.

(** ** The public operations *)

Definition bad_timeout (t : Z) : bool := (t =? 0) || (t >=? s_kMaximumRelativeTimeout).

Definition holds_lease (l : FciControlLeaseSnapshot) : bool :=
  match l_state l with
  | kHeld | kRenewQueued | kRenewing => negb (l_token l =? 0)
  | _ => false
  end.

Definition lease_request (timeout token : Z) : OperationRequest := {|
  r_device_settings := settings0; r_custom_name := []; r_lease_token := token;
  r_requested_lease_timeout_ms := timeout; r_joint_id := 0; r_register_id := 0; r_arm_mode := 0;
  r_control_mode := 1; r_value := 0 |}.
Definition name_request (name : bytes) : OperationRequest := {|
  r_device_settings := settings0; r_custom_name := name; r_lease_token := 0;
  r_requested_lease_timeout_ms := 0; r_joint_id := 0; r_register_id := 0; r_arm_mode := 0;
  r_control_mode := 1; r_value := 0 |}.
Definition settings_request (s : DeviceSettings) : OperationRequest := {|
  r_device_settings := s; r_custom_name := []; r_lease_token := 0;
  r_requested_lease_timeout_ms := 0; r_joint_id := 0; r_register_id := 0; r_arm_mode := 0;
  r_control_mode := 1; r_value := 0 |}.
Definition mode_request (arm_mode control_mode : Z) : OperationRequest := {|
  r_device_settings := settings0; r_custom_name := []; r_lease_token := 0;
  r_requested_lease_timeout_ms := 0; r_joint_id := 0; r_register_id := 0; r_arm_mode := arm_mode;
  r_control_mode := control_mode; r_value := 0 |}.
Definition motor_request (joint register value : Z) : OperationRequest := {|
  r_device_settings := settings0; r_custom_name := []; r_lease_token := 0;
  r_requested_lease_timeout_ms := 0; r_joint_id := joint; r_register_id := register;
  r_arm_mode := 0; r_control_mode := 1; r_value := value |}.

Section public.
Variables (upgrading : bool) (clock : Z).

Definition reject (st : FciEndpointStatus) (e : FciWirelinkEndpoint)
    : FciSubmitResult * FciWirelinkEndpoint := ((st, 0), e).

Definition acquireControlLease (requested rpc_timeout : Z) (e : FciWirelinkEndpoint) :=
  if bad_timeout requested || bad_timeout rpc_timeout then reject kInvalidArgument e
  else
    match l_state (m_lease e) with
    | kAcquireQueued | kAcquiring | kRenewQueued | kRenewing | kReleaseQueued | kReleasing =>
        reject kBusy e
    | st =>
        let token := match st with kHeld => l_token (m_lease e) | _ => 0 end in
        s_submit upgrading clock kAcquireLease rpc_timeout (lease_request requested token) false e
    end.

Definition releaseControlLease (rpc_timeout : Z) (e : FciWirelinkEndpoint) :=
  if bad_timeout rpc_timeout then reject kInvalidArgument e
  else if negb (holds_lease (m_lease e)) then reject kNoLease e
  else s_submit upgrading clock kReleaseLease rpc_timeout (lease_request 0 (l_token (m_lease e)))
         false e.

(** The operations without a request, or with one that is checked first. *)
Definition checked (ok : bool) (kind : RpcKind) (request : OperationRequest) (timeout : Z)
    (e : FciWirelinkEndpoint) :=
  if bad_timeout timeout || negb ok then reject kInvalidArgument e
  else s_submit upgrading clock kind timeout request false e.

Definition getDeviceInfo := checked true kGetDeviceInfo request0.
Definition setDeviceInfo (name : bytes) :=
  checked (length name <=? 31)%nat kSetDeviceInfo (name_request name).
Definition getDeviceSettings := checked true kGetDeviceSettings request0.
Definition setDeviceSettings (s : DeviceSettings) :=
  checked (s_validSettings s) kSetDeviceSettings (settings_request s).
Definition setArmControlMode (mode : Z) :=
  checked ((1 <=? u8 mode) && (u8 mode <=? 4)) kSetArmControlMode (mode_request 0 mode).
Definition setGripperControlMode (mode : Z) :=
  checked ((1 <=? u8 mode) && (u8 mode <=? 4)) kSetGripperControlMode (mode_request 0 mode).
Definition setArmMode (mode : Z) := checked (u8 mode <=? 4) kSetArmMode (mode_request mode 1).
Definition home := checked true kHome request0.
Definition setZero (joint : Z) := checked (joint <=? 6) kSetZero (motor_request joint 0 0).
Definition clearError (joint : Z) := checked (joint <=? 6) kClearError (motor_request joint 0 0).
Definition clearFaults := checked true kClearFaults request0.
Definition emergencyStop := checked true kEmergencyStop request0.
Definition readMotorRegister (joint register : Z) :=
  checked (joint <=? 6) kMotorRegisterRead (motor_request joint register 0).
Definition writeMotorRegister (joint register value : Z) :=
  checked ((joint <=? 6) && isfinite value) kMotorRegisterWrite (motor_request joint register value).
Definition storeMotorParameters (joint : Z) :=
  checked (joint <=? 6) kMotorStoreParameters (motor_request joint 0 0).
Definition setMotorZero (joint : Z) := checked (joint <=? 6) kMotorSetZero (motor_request joint 0 0).
End public.

(** ** Reading and consuming results *)

(** The [s_result_out] argument is written only where a result is returned. *)
Definition inspectOperation (id : Z) (e : FciWirelinkEndpoint)
    : FciEndpointStatus * option FciOperationResult :=
  match s_findSlot id e with
  | None => (kNoData, None)
  | Some i =>
      let r := s_result (default slot0 (m_operations e !! i)) in (res_status r, Some r)
  end.

(** [e] is the state on entry and [e'] the one in which [wait_for] returned,
    notified or after the local wait ran out. *)
Definition waitOperation (id wait : Z) (e e' : FciWirelinkEndpoint)
    : FciEndpointStatus * option FciOperationResult :=
  if wait <? 0 then (kInvalidArgument, None)
  else
    match s_findSlot id e, s_findSlot id e' with
    | None, _ | _, None => (kNoData, None)
    | Some _, Some i =>
        let s := default slot0 (m_operations e' !! i) in
        (if s_terminal (o_state s) then o_status s else kBusy, Some (s_result s))
    end.

(** The four [take*] functions: the kinds they accept and what they copy out
    when the status is [kOk]. *)
Definition take_slot {A} (accepts : RpcKind -> bool) (value : OperationSlot -> option A) (id : Z)
    (e : FciWirelinkEndpoint)
    : (FciEndpointStatus * option FciOperationResult * option A) * FciWirelinkEndpoint :=
  match s_findSlot id e with
  | None => ((kNoData, None, None), e)
  | Some i =>
      let s := default slot0 (m_operations e !! i) in
      if negb (accepts (o_kind s)) then ((kNoData, None, None), e)
      else if negb (s_terminal (o_state s)) then ((kBusy, Some (s_result s), None), e)
      else
        ((o_status s, Some (s_result s),
          if decide (o_status s = kOk) then value s else None), set_slot i slot0 e)
  end.

Definition takeOperation (id : Z) :=
  take_slot (fun _ => true) (fun _ => @None unit) id.
Definition takeDeviceInfo (id : Z) :=
  take_slot (fun k => bool_decide (k = kGetDeviceInfo)) o_device_info id.
Definition takeDeviceSettings (id : Z) :=
  take_slot (fun k => bool_decide (k = kGetDeviceSettings) || bool_decide (k = kSetDeviceSettings))
    o_device_settings id.
Definition takeMotorRegister (id : Z) :=
  take_slot (fun k => bool_decide (k = kMotorRegisterRead)) o_motor_register id.

Definition controlLease (e : FciWirelinkEndpoint) : FciControlLeaseSnapshot := m_lease e.

Definition s_commandToken (upgrading : bool) (e : FciWirelinkEndpoint) : FciEndpointStatus * Z :=
  if upgrading then (kBusy, 0)
  else if negb (m_running e) then (kNotReady, 0)
  else if negb (holds_lease (m_lease e)) then (kNoLease, 0)
  else (kOk, l_token (m_lease e)).

(** ** Requests on the wire *)

Definition request_desc (k : RpcKind) : option wlc_desc :=
  match k with
  | kNone => None
  | kAcquireLease => Some acquire_control_lease_request_desc
  | kReleaseLease => Some release_control_lease_request_desc
  | kGetDeviceInfo => Some get_device_info_request_desc
  | kSetDeviceInfo => Some set_device_info_request_desc
  | kGetDeviceSettings => Some get_device_settings_request_desc
  | kSetDeviceSettings => Some set_device_settings_request_desc
  | kSetArmControlMode => Some set_arm_control_mode_request_desc
  | kSetGripperControlMode => Some set_gripper_control_mode_request_desc
  | kSetArmMode => Some set_arm_mode_request_desc
  | kHome => Some home_request_desc
  | kSetZero => Some set_zero_request_desc
  | kClearError => Some clear_error_request_desc
  | kClearFaults => Some clear_faults_request_desc
  | kEmergencyStop => Some emergency_stop_request_desc
  | kMotorRegisterRead => Some motor_register_read_request_desc
  | kMotorRegisterWrite => Some motor_register_write_request_desc
  | kMotorStoreParameters => Some motor_store_parameters_request_desc
  | kMotorSetZero => Some motor_set_zero_request_desc
  end.

(** A string of an owned value: the bytes in a zeroed array of 31. *)
Definition name_value (name : bytes) : wval :=
  VSpan (Some (name ++ repeat 0 (31 - length name))) (Z.of_nat (length name)).

(** The members that [s_startNext] assigns, on [T s_request{}]. *)
Definition request_members (k : RpcKind) (r : OperationRequest) (d : wlc_desc) : wstruct -> wstruct :=
  match k with
  | kNone | kGetDeviceInfo | kGetDeviceSettings | kHome | kClearFaults | kEmergencyStop => id
  | kAcquireLease =>
      fun w =>
        let w := set_scalar d "requested_timeout_ms" (r_requested_lease_timeout_ms r) w in
        if r_lease_token r =? 0 then w else set_scalar d "current_token" (r_lease_token r) w
  | kReleaseLease => set_scalar d "lease_token" (r_lease_token r)
  | kSetDeviceInfo => wire_set d "custom_name" (SOpt true (name_value (r_custom_name r)))
  | kSetDeviceSettings =>
      wire_set d "settings" (SOpt true (VMsg (s_settingsToWire (r_device_settings r))))
  | kSetArmControlMode | kSetGripperControlMode =>
      set_scalar d "mode" (s_controlMode (r_control_mode r))
  | kSetArmMode => set_scalar d "mode" (s_armMode (r_arm_mode r))
  | kSetZero | kClearError | kMotorStoreParameters | kMotorSetZero =>
      set_scalar d "joint_id" (r_joint_id r)
  | kMotorRegisterRead =>
      fun w => set_scalar d "register_id" (r_register_id r) (set_scalar d "joint_id" (r_joint_id r) w)
  | kMotorRegisterWrite =>
      fun w => set_scalar d "value" (r_value r) (set_scalar d "register_id" (r_register_id r)
        (set_scalar d "joint_id" (r_joint_id r) w))
  end.

Definition request_value (k : RpcKind) (r : OperationRequest) (d : wlc_desc) : wstruct :=
  request_members k r d (value_zero d).

(** ** Completions *)

Inductive wl_rpc_status := WL_RPC_SUCCESS | WL_RPC_REJECTED | WL_RPC_TIMED_OUT | WL_RPC_CANCELLED
  | WL_RPC_FAILED.
#[global] Instance wl_rpc_status_eq_dec : EqDecision wl_rpc_status.
Proof. solve_decision. Defined.

Record wl_rpc_completion_t := {
  c_status : wl_rpc_status;
  c_rejection : Z;
  c_transport_error : Z
}.
Definition completed_with (st : wl_rpc_status) : wl_rpc_completion_t :=
  {| c_status := st; c_rejection := 0; c_transport_error := 0 |}.

(** The response and the type at which [s_finalize] is instantiated. *)
Inductive Response :=
| AcquireResponse (w : wstruct)
| DeviceInfoResponse (w : wstruct)
| GetSettingsResponse (w : wstruct)
| SetSettingsResponse (w : wstruct)
| MotorReadResponse (w : wstruct)
| OtherResponse.

(** What [s_finalize] takes from a response. *)
Record Extracted := {
  x_valid : bool;
  x_granted_token : Z;
  x_granted_timeout : Z;
  x_device_info : option FixedDeviceInfo;
  x_device_settings : option DeviceSettings;
  x_motor_register : option Z
}.
Definition extracted (valid : bool) : Extracted := {|
  x_valid := valid; x_granted_token := 0; x_granted_timeout := 0; x_device_info := None;
  x_device_settings := None; x_motor_register := None |}.

Definition version_of_wire (w : wstruct) : Version := {|
  m_major := snd (wire_int semantic_version_desc "major" w);
  m_minor := snd (wire_int semantic_version_desc "minor" w);
  m_patch := snd (wire_int semantic_version_desc "patch" w) |}.

(** [s_copyString] into an array of 32 characters. *)
Definition s_copyString (source : bytes) : option bytes :=
  if (32 <=? length source)%nat then None else Some source.

Definition acquire_extract (w : wstruct) : Extracted :=
  let d := acquire_control_lease_response_desc in
  let '(has_token, token) := wire_int d "lease_token" w in
  let '(has_granted, granted) := wire_int d "granted_timeout_ms" w in
  {| x_valid := has_token && negb (token =? 0) && has_granted && negb (granted =? 0) &&
       (granted <? 2147483648);
     x_granted_token := token; x_granted_timeout := granted;
     x_device_info := None; x_device_settings := None; x_motor_register := None |}.

Definition info_of_wire (info : wstruct) : option FixedDeviceInfo :=
  let d := device_info_desc in
  let '(has_caps, caps) := wire_int d "command_capabilities" info in
  board ← s_copyString (snd (wire_text d "board_name" info));
  custom ← s_copyString (snd (wire_text d "custom_name" info));
  serial ← s_copyString (snd (wire_text d "serial" info));
  Some {|
    fi_protocol_version := version_of_wire (snd (wire_msg d "protocol_version" info));
    fi_firmware_version := version_of_wire (snd (wire_msg d "firmware_version" info));
    fi_board_name := board; fi_custom_name := custom; fi_serial_number := serial;
    fi_firmware_type := s_firmwareType (snd (wire_int d "firmware_type" info));
    fi_command_capabilities := if has_caps : bool then caps else 0 |}.

Definition info_extract (w : wstruct) : Extracted :=
  let '(has_info, info) := wire_msg get_device_info_response_desc "info" w in
  let r :=
    if has_info && negb (length (snd (wire_text device_info_desc "serial" info)) =? 0)%nat
    then info_of_wire info else None in
  {| x_valid := match r with Some _ => true | None => false end;
     x_granted_token := 0; x_granted_timeout := 0; x_device_info := r;
     x_device_settings := None; x_motor_register := None |}.

Definition settings_extract (d : wlc_desc) (w : wstruct) : Extracted :=
  let '(has_settings, settings) := wire_msg d "settings" w in
  let r := if has_settings : bool then s_settingsFromWire settings else None in
  {| x_valid := match r with Some _ => true | None => false end;
     x_granted_token := 0; x_granted_timeout := 0; x_device_info := None;
     x_device_settings := r; x_motor_register := None |}.

Definition motor_extract (r : OperationRequest) (w : wstruct) : Extracted :=
  let d := motor_register_read_response_desc in
  let '(has_joint, joint) := wire_int d "joint_id" w in
  let '(has_register, register) := wire_int d "register_id" w in
  let '(has_value, value) := wire_int d "value" w in
  let ok := has_joint && (joint =? r_joint_id r) && has_register && (register =? r_register_id r) &&
    has_value && isfinite value in
  {| x_valid := ok; x_granted_token := 0; x_granted_timeout := 0; x_device_info := None;
     x_device_settings := None; x_motor_register := if ok then Some value else None |}.

Definition extract (request : OperationRequest) (response : option Response) : Extracted :=
  match response with
  | None => extracted false
  | Some (AcquireResponse w) => acquire_extract w
  | Some (DeviceInfoResponse w) => info_extract w
  | Some (GetSettingsResponse w) => settings_extract get_device_settings_response_desc w
  | Some (SetSettingsResponse w) => settings_extract set_device_settings_response_desc w
  | Some (MotorReadResponse w) => motor_extract request w
  | Some OtherResponse => extracted true
  end.

Definition completion_state (st : wl_rpc_status) : FciOperationState :=
  match st with
  | WL_RPC_SUCCESS => kCompleted
  | WL_RPC_REJECTED => kDomainError
  | WL_RPC_TIMED_OUT => kTimedOut
  | WL_RPC_CANCELLED => kOpCancelled
  | WL_RPC_FAILED => kLinkFailed
  end.

Definition final_status (valid : bool) (st : FciOperationState) (domain : Z) : FciEndpointStatus :=
  if negb valid then kInternalError
  else
    match st with
    | kCompleted => if domain =? 0 then kOk else kDomainErrorStatus
    | kDomainError => kDomainErrorStatus
    | kTimedOut => kTimeout
    | kOpCancelled => kCancelled
    | kLinkFailed => kLinkError
    | _ => kInternalError
    end.

Definition final_slot (c : wl_rpc_completion_t) (status : FciEndpointStatus) (x : Extracted)
    (s : OperationSlot) : OperationSlot := {|
  o_admitted := o_admitted s; o_request_id := o_request_id s; o_timeout_ms := o_timeout_ms s;
  o_submitted_at_ms := o_submitted_at_ms s; o_request := o_request s; o_kind := o_kind s;
  o_state := completion_state (c_status c); o_status := status; o_domain_status := c_rejection c;
  o_link_status := c_transport_error c; o_device_info := x_device_info x;
  o_device_settings := x_device_settings x; o_motor_register := x_motor_register x;
  o_internal := o_internal s; o_used := o_used s |}.

Definition lease_cancelled : FciControlLeaseSnapshot := {|
  l_state := kReleased; l_status := kCancelled; l_domain_status := 0; l_token := 0;
  l_granted_timeout_ms := 0 |}.

(** The part of [s_finalize] that updates the lease. *)
Definition final_lease (clock : Z) (s : OperationSlot) (x : Extracted) (e : FciWirelinkEndpoint)
    : FciWirelinkEndpoint :=
  if negb (m_running e) then with_lease lease_cancelled e
  else
    match o_kind s with
    | kAcquireLease =>
        if decide (o_status s = kOk) then
          with_times (u32 (clock + Z.max 1 (x_granted_timeout x / 2)))
            (u32 (clock + x_granted_timeout x)) (r_requested_lease_timeout_ms (o_request s))
            (with_lease {| l_state := kHeld; l_status := kOk; l_domain_status := o_domain_status s;
               l_token := x_granted_token x; l_granted_timeout_ms := x_granted_timeout x |} e)
        else
          with_lease (lease_lost (if decide (o_state s = kTimedOut) then kExpired else kFailed)
            (o_status s) (o_domain_status s)) e
    | kReleaseLease =>
        if decide (o_status s = kOk) then with_lease lease0 e
        else with_lease (lease_lost kFailed (o_status s) (o_domain_status s)) e
    | _ => e
    end.

(** [clock]: the reading of [wl_endpoint_now]. *)
Definition s_finalize (clock : Z) (index : nat) (c : wl_rpc_completion_t) (response : option Response)
    (e : FciWirelinkEndpoint) : FciWirelinkEndpoint :=
  match m_operations e !! index with
  | None => e
  | Some s0 =>
      let x := if decide (c_status c = WL_RPC_SUCCESS) then extract (o_request s0) response
               else extracted true in
      let state := completion_state (c_status c) in
      let status := final_status (x_valid x) state (c_rejection c) in
      let s := final_slot c status x s0 in
      let e1 :=
        match o_kind s0, x_device_info x with
        | kGetDeviceInfo, Some info =>
            if decide (status = kOk) then with_caps (fi_command_capabilities info) e else e
        | _, _ => e
        end in
      let e2 := final_lease clock s x (set_slot index s e1) in
      let e3 := if decide (m_active_operation e2 = Some index) then with_active None e2 else e2 in
      if o_internal s0 then set_slot index slot0 e3 else e3
  end.

(** ** The owner's pass *)

Section owner.
(** The generated [*_async] call: the kind's table, the request and the
    remaining time. *)
Variable start_rpc : wlc_desc -> wstruct -> Z -> wl_result.

Definition starting_lease (s : OperationSlot) (e : FciWirelinkEndpoint) : FciWirelinkEndpoint :=
  match o_kind s with
  | kAcquireLease =>
      with_lease (lease_state (if renews (o_internal s) (o_request s) then kRenewing
        else kAcquiring) (m_lease e)) e
  | kReleaseLease => with_lease (lease_state kReleasing (m_lease e)) e
  | _ => e
  end.

Definition started (s : OperationSlot) (remaining : Z) : wl_result :=
  match request_desc (o_kind s) with
  | None => WL_ERR_INVALID_ARG
  | Some d => start_rpc d (request_value (o_kind s) (o_request s) d) remaining
  end.

Definition s_startNext (clock now : Z) (e : FciWirelinkEndpoint) : bool * FciWirelinkEndpoint :=
  match m_active_operation e, s_findQueuedSlot e with
  | Some _, _ | _, None => (false, e)
  | None, Some i =>
      let s := op_state kLinkPending (default slot0 (m_operations e !! i)) in
      let e1 := starting_lease s (set_slot i s (with_active (Some i) e)) in
      let remaining := s_queueRemaining now (o_submitted_at_ms s) (o_timeout_ms s) in
      if remaining =? 0
      then (true, s_finalize clock i (completed_with WL_RPC_TIMED_OUT) None e1)
      else
        match started s remaining with
        | WL_OK => (true, set_slot i (op_admitted s) e1)
        | r =>
            let e2 := set_slot i (op_state kQueued s) (with_active None e1) in
            (false,
             match r with
             | WL_ERR_BUSY | WL_ERR_WOULD_BLOCK => e2
             | _ => s_finalize clock i (completed_with WL_RPC_FAILED) None e2
             end)
        end
  end.

Definition renewal_request (timeout token : Z) : OperationRequest := lease_request timeout token.

(** The renewal is submitted outside the lock; [submit_upgrading] and
    [submit_clock] are what [s_submit] reads then. *)
Definition s_scheduleRenewal (submit_upgrading : bool) (submit_clock now : Z)
    (e : FciWirelinkEndpoint) : bool * FciWirelinkEndpoint :=
  let l := m_lease e in
  if negb (bool_decide (l_state l = kHeld)) || (l_token l =? 0) ||
     negb (s_until now (m_lease_renew_at_ms e) =? 0)
  then (false, e)
  else
    let timeout := m_lease_requested_timeout_ms e in
    let '((status, _), e') := s_submit submit_upgrading submit_clock kAcquireLease timeout
      (renewal_request timeout (l_token l)) true e in
    (bool_decide (status = kOk), e').

Definition queue_expired (now : Z) (s : OperationSlot) : bool :=
  is_queued s && (s_queueRemaining now (o_submitted_at_ms s) (o_timeout_ms s) =? 0).

(** One round of the loop that times queued operations out. *)
Definition expire_slot (clock now : Z) (e : FciWirelinkEndpoint) (i : nat) : FciWirelinkEndpoint :=
  if queue_expired now (default slot0 (m_operations e !! i))
  then s_finalize clock i (completed_with WL_RPC_TIMED_OUT) None e
  else e.

Definition expire_queue (clock now : Z) (e : FciWirelinkEndpoint) : FciWirelinkEndpoint :=
  foldl (expire_slot clock now) e (seq 0 s_kOperationCapacity).

Definition expire_lease (now : Z) (e : FciWirelinkEndpoint) : FciWirelinkEndpoint :=
  let l := m_lease e in
  if (bool_decide (l_state l = kRenewQueued) || bool_decide (l_state l = kRenewing)) &&
     (s_until now (m_lease_expire_at_ms e) =? 0)
  then with_lease (lease_lost kExpired kTimeout (l_domain_status l)) e
  else e.

Definition s_progress (upgrading submit_upgrading : bool) (clock submit_clock now : Z)
    (e : FciWirelinkEndpoint) : bool * FciWirelinkEndpoint :=
  let e1 := expire_lease now (expire_queue clock now e) in
  let e2 := if upgrading : bool then with_lease lease0 e1
            else snd (s_scheduleRenewal submit_upgrading submit_clock now e1) in
  s_startNext clock now e2.
End owner.

(** ** Telemetry *)

Inductive Telemetry := ArmStatusEvent (s : FciArmStatusSnapshot) | DiagnosticsEvent (d : ArmDiagnostics).

(** The views that [*_latest_acquire] returns, [None] when there is none; the
    result lists the callbacks made, in order, and tells whether a view was
    consumed. *)
Definition s_drainLatest (now : Z) (arm : option (wstruct * Z)) (diagnostics : option wstruct)
    : list Telemetry * bool :=
  let events :=
    match arm with
    | Some (w, generation) =>
        if s_validArmStatus w then [ArmStatusEvent (s_armStatusFromWire now w generation)] else []
    | None => []
    end ++
    match d ← diagnostics; s_diagnosticsFromWire d with
    | Some d => [DiagnosticsEvent d]
    | None => []
    end in
  (events, match arm, diagnostics with None, None => false | _, _ => true end).

(** ** Start, stop and deadlines *)

(** [start] publishes [m_running]; a failing executor withdraws it. *)
Definition start_publish (e : FciWirelinkEndpoint) : FciEndpointStatus * FciWirelinkEndpoint :=
  if m_running e then (kNotReady, e) else (kOk, with_running true e).
Definition start_finish (result : wl_result) (e : FciWirelinkEndpoint)
    : FciEndpointStatus * FciWirelinkEndpoint :=
  match result with
  | WL_OK => (kOk, e)
  | r => (s_endpointStatus r, with_running false e)
  end.

Definition stop_slot (s : OperationSlot) : OperationSlot :=
  if negb (o_used s) || s_terminal (o_state s) || negb (bool_decide (o_state s = kQueued)) then s
  else if o_internal s then slot0 else op_cancelled s.

Definition s_stopOnOwner (e : FciWirelinkEndpoint) : FciWirelinkEndpoint :=
  with_lease lease_cancelled (with_ops (map stop_slot (m_operations e)) (with_running false e)).

(** [no_deadline]: the constant [WL_RPC_NO_DEADLINE_MS] of the link library. *)
Definition s_applicationDeadline (no_deadline now : Z) (e : FciWirelinkEndpoint) : Z :=
  let queue := foldl (fun nearest s =>
    if is_queued s
    then Z.min nearest (s_queueRemaining now (o_submitted_at_ms s) (o_timeout_ms s))
    else nearest) no_deadline (m_operations e) in
  match l_state (m_lease e) with
  | kHeld => Z.min queue (s_until now (m_lease_renew_at_ms e))
  | kRenewQueued | kRenewing => Z.min queue (s_until now (m_lease_expire_at_ms e))
  | _ => queue
  end.
