(* ===== verification/EndpointInv.v ===== *)
(** * The device endpoint: its state machine

    The interleavings of producer threads, the owner's passes, completions of
    the link and start and stop as a step relation on the record of
    [Endpoint.v], its invariant and what follows for every reachable state. *)

From Stdlib Require Import String.
From S2P Require Import Prelude WlcWire WlcSchema WlcCodec FciMessages DeviceTypes Endpoint EndpointOps.

(** ** Steps *)

(** [s_complete] is instantiated with the response type of the operation's
    kind. *)
Definition response_matches (k : RpcKind) (r : Response) : bool :=
  match r, k with
  | AcquireResponse _, kAcquireLease | DeviceInfoResponse _, kGetDeviceInfo
  | GetSettingsResponse _, kGetDeviceSettings | SetSettingsResponse _, kSetDeviceSettings
  | MotorReadResponse _, kMotorRegisterRead => true
  | OtherResponse, k =>
      match k with
      | kAcquireLease | kGetDeviceInfo | kGetDeviceSettings | kSetDeviceSettings
      | kMotorRegisterRead => false
      | _ => true
      end
  | _, _ => false
  end.

Definition response_typed (k : RpcKind) (r : option Response) : Prop :=
  match r with Some r => response_matches k r = true | None => True end.

(** The counter of request ids is one below its wrap-around: 2^64 - 2
    submissions. *)
Definition ids_left (e : FciWirelinkEndpoint) : Prop := m_next_request_id e < 2 ^ 64 - 1.

Inductive ep_step : FciWirelinkEndpoint -> FciWirelinkEndpoint -> Prop :=
| step_submit upgrading clock kind timeout request e :
    ids_left e ->
    ep_step e (snd (s_submit upgrading clock kind timeout request false e))
| step_progress start_rpc upgrading submit_upgrading clock submit_clock now e :
    ids_left e ->
    ep_step e (snd (s_progress start_rpc upgrading submit_upgrading clock submit_clock now e))
| step_complete clock i s c response e :
    m_active_operation e = Some i -> m_operations e !! i = Some s ->
    response_typed (o_kind s) response ->
    ep_step e (s_finalize clock i c response e)
| step_take A accepts (value : OperationSlot -> option A) id e :
    ep_step e (snd (take_slot accepts value id e))
| step_running r e : ep_step e (with_running r e)
| step_stop e : ep_step e (s_stopOnOwner e).

Abbreviation reachable := (steps ep_step endpoint0).

(** ** The invariant *)

Definition lease_ok (l : FciControlLeaseSnapshot) : Prop :=
  match l_state l with
  | kHeld => l_token l <> 0 /\ l_granted_timeout_ms l <> 0 /\ l_granted_timeout_ms l < 2 ^ 31
  | kReleased | kExpired | kFailed => l_token l = 0
  | _ => True
  end.

Definition slot_ok (next : Z) (active : option nat) (i : nat) (s : OperationSlot) : Prop :=
  if o_used s then
    1 <= o_request_id s < next /\
    (o_state s = kQueued \/ (o_state s = kLinkPending /\ active = Some i) \/
     (s_terminal (o_state s) = true /\ o_internal s = false)) /\
    (i = 7%nat -> o_internal s = true)
  else s = slot0.

Record ep_inv (e : FciWirelinkEndpoint) : Prop := {
  inv_len : length (m_operations e) = s_kOperationCapacity;
  inv_slot i s : m_operations e !! i = Some s ->
    slot_ok (m_next_request_id e) (m_active_operation e) i s;
  inv_active i : m_active_operation e = Some i ->
    exists s, m_operations e !! i = Some s /\ o_used s = true /\ o_state s = kLinkPending;
  inv_ids i j s t : m_operations e !! i = Some s -> m_operations e !! j = Some t ->
    o_used s = true -> o_used t = true -> o_request_id s = o_request_id t -> i = j;
  inv_next : 1 <= m_next_request_id e < 2 ^ 64;
  inv_lease : lease_ok (m_lease e)
}.

Lemma inv_init : ep_inv endpoint0.
Proof.
  assert (forall i s, m_operations endpoint0 !! i = Some s -> s = slot0) as H0.
  { intros i s Hi%list_elem_of_lookup_2. by eapply repeat_spec, list_elem_of_In, Hi. }
  constructor.
  - done.
  - intros i s ->%H0. done.
  - done.
  - by intros i j s t ->%H0.
  - simpl. lia.
  - done.
Qed.

(** ** Searches in the slot array *)

Lemma find_index_some p l k i : find_index p l k = Some i ->
  exists s, (k <= i)%nat /\ l !! (i - k)%nat = Some s /\ p s = true /\
    forall j t, (j < i - k)%nat -> l !! j = Some t -> p t = false.
Proof.
  revert k. induction l as [|s l IH]; intros k; [done|]. cbn.
  destruct (p s) eqn:Hp.
  - intros [= ->]. exists s. rewrite Nat.sub_diag. repeat split; [lia|done|intros; lia].
  - intros (t & Hk & Hl & Hpt & Hf)%IH. exists t. replace (i - k)%nat with (S (i - S k)) by lia.
    split_and!; try (done || lia). intros [|j] u Hj; [by intros [= <-]|apply Hf; lia].
Qed.

Lemma find_index_none p l k : find_index p l k = None -> forall i s, l !! i = Some s -> p s = false.
Proof.
  revert k. induction l as [|s l IH]; intros k; [done|]. cbn.
  destruct (p s) eqn:Hp; [done|]. intros H [|i] t; [by intros [= <-]|by apply (IH _ H)].
Qed.

Lemma findSlot_some id e i : s_findSlot id e = Some i ->
  exists s, m_operations e !! i = Some s /\ o_used s = true /\ o_request_id s = id.
Proof.
  intros (s & _ & Hl & Hp & _)%find_index_some. rewrite Nat.sub_0_r in Hl.
  apply andb_prop in Hp as [? ?%Z.eqb_eq]. by exists s.
Qed.

Lemma findSlot_iff id e i : ep_inv e ->
  s_findSlot id e = Some i <->
  exists s, m_operations e !! i = Some s /\ o_used s = true /\ o_request_id s = id.
Proof.
  intros Hinv. split; [apply findSlot_some|]. intros (s & Hs & Hu & <-).
  destruct (s_findSlot (o_request_id s) e) as [j|] eqn:Hf.
  - apply findSlot_some in Hf as (t & Ht & Hut & Hid). f_equal. by eapply inv_ids.
  - pose proof (find_index_none _ _ _ Hf i s Hs) as H. simpl in H. by rewrite Hu, Z.eqb_refl in H.
Qed.

(** The scan for the oldest queued operation. *)
Definition oldest_of (P : nat -> OperationSlot -> Prop) (i : nat) (s : OperationSlot) : Prop :=
  P i s /\ is_queued s = true /\
  forall j t, P j t -> is_queued t = true -> o_request_id s <= o_request_id t.

Lemma oldest_queued_sound l k sel old i : oldest_queued l k sel old = Some i ->
  (sel = Some i /\ forall j t, l !! j = Some t -> is_queued t = true -> old <= o_request_id t) \/
  exists s, (k <= i)%nat /\ l !! (i - k)%nat = Some s /\ is_queued s = true /\ o_request_id s < old /\
    forall j t, l !! j = Some t -> is_queued t = true -> o_request_id s <= o_request_id t.
Proof.
  revert k sel old. induction l as [|s l IH]; intros k sel old; cbn; [by left|].
  destruct (is_queued s && (o_request_id s <? old)) eqn:Hq.
  - apply andb_prop in Hq as [Hq Hlt%Z.ltb_lt]. intros [[[= ->] Hall]|(t & Hk & Ht & Htq & Hto & Hall)]%IH; right.
    + exists s. rewrite Nat.sub_diag. split_and!; try (done || lia).
      intros [|j] t; [by intros [= <-]|apply Hall].
    + exists t. replace (i - k)%nat with (S (i - S k)) by lia. split_and!; try (done || lia).
      intros [|j] u; [intros [= <-]; lia|apply Hall].
  - assert (is_queued s = true -> old <= o_request_id s) as Hs.
    { intros Hs. rewrite Hs in Hq. by apply Z.ltb_ge in Hq. }
    intros [[-> Hall]|(t & Hk & Ht & Htq & Hto & Hall)]%IH; [left|right].
    + split; [done|]. intros [|j] t; [intros [= <-]; auto|apply Hall].
    + exists t. replace (i - k)%nat with (S (i - S k)) by lia. split_and!; try (done || lia).
      intros [|j] u; [intros [= <-] ?%Hs; lia|apply Hall].
Qed.

Lemma oldest_queued_none l k sel old : oldest_queued l k sel old = None ->
  sel = None /\ forall j t, l !! j = Some t -> is_queued t = true -> old <= o_request_id t.
Proof.
  revert k sel old. induction l as [|s l IH]; intros k sel old; cbn; [done|].
  destruct (is_queued s && (o_request_id s <? old)) eqn:Hq.
  - by intros [? _]%IH.
  - intros [-> Hall]%IH. split; [done|]. intros [|j] t; [|apply Hall]. intros [= <-] Hs.
    rewrite Hs in Hq. by apply Z.ltb_ge in Hq.
Qed.

Lemma findQueuedSlot_some e i : s_findQueuedSlot e = Some i ->
  exists s, m_operations e !! i = Some s /\ is_queued s = true /\
    forall j t, m_operations e !! j = Some t -> is_queued t = true ->
      o_request_id s <= o_request_id t.
Proof.
  intros [[? _]|(s & _ & Hl & Hq & _ & Hall)]%oldest_queued_sound; [done|].
  rewrite Nat.sub_0_r in Hl. by exists s.
Qed.

Lemma is_queued_spec s : is_queued s = true <-> o_used s = true /\ o_state s = kQueued.
Proof. unfold is_queued. rewrite andb_true_iff, bool_decide_eq_true. done. Qed.

Lemma findQueuedSlot_none e : ep_inv e -> s_findQueuedSlot e = None ->
  forall i s, m_operations e !! i = Some s -> is_queued s = false.
Proof.
  intros Hinv [_ Hall]%oldest_queued_none i s Hs. apply not_true_iff_false. intros Hq.
  specialize (Hall i s Hs Hq). apply is_queued_spec in Hq as [Hu _].
  pose proof (inv_slot e Hinv i s Hs) as Hok. unfold slot_ok in Hok. rewrite Hu in Hok.
  pose proof (inv_next e Hinv). lia.
Qed.

Lemma allocate_some e internal i : ep_inv e -> s_allocateSlot internal e = Some i ->
  m_operations e !! i = Some slot0 /\ (i < 8)%nat /\ (i = 7%nat -> internal = true).
Proof.
  intros Hinv. pose proof (inv_len e Hinv) as Hlen. unfold s_allocateSlot.
  assert (forall j s, m_operations e !! j = Some s -> o_used s = false -> s = slot0) as H0.
  { intros j s Hs Hu. pose proof (inv_slot e Hinv j s Hs) as Hok. unfold slot_ok in Hok.
    by rewrite Hu in Hok. }
  rewrite Hlen. destruct (internal && _) eqn:Hb.
  - intros [= <-]. apply andb_prop in Hb as [-> Hb]. change (8 - 1)%nat with 7%nat in *.
    destruct (lookup_lt_is_Some_2 (m_operations e) 7) as [s Hs]; [rewrite Hlen; unfold s_kOperationCapacity; lia|].
    unfold s_kOperationCapacity in *. simpl in Hb |- *. rewrite Hs in Hb |- *. simpl in Hb.
    apply negb_true_iff in Hb. rewrite (H0 7%nat s Hs Hb). split; [done|]. split; [lia|done].
  - intros (s & _ & Hl & Hp & _)%find_index_some. rewrite Nat.sub_0_r in Hl.
    apply lookup_take_Some in Hl as [Hl Hi]. apply negb_true_iff in Hp.
    rewrite (H0 i s Hl Hp) in Hl. split; [done|]. unfold s_kOperationCapacity, s_kPublicOperationCapacity in *.
    destruct internal; split; (lia || done).
Qed.

(** ** Preservation *)

(** What a change must satisfy to keep the invariant: it touches slot [i], the
    active operation and the lease. *)
Lemma inv_update e e' i s s' :
  ep_inv e -> m_operations e !! i = Some s ->
  m_operations e' = <[i:=s']> (m_operations e) ->
  m_next_request_id e' = m_next_request_id e ->
  (m_active_operation e' = m_active_operation e \/
   m_active_operation e' = None /\ (m_active_operation e = Some i \/ m_active_operation e = None) \/
   m_active_operation e = None /\ m_active_operation e' = Some i) ->
  slot_ok (m_next_request_id e) (m_active_operation e') i s' ->
  (o_used s' = true -> o_used s = true /\ o_request_id s' = o_request_id s) ->
  (m_active_operation e' = Some i -> o_used s' = true /\ o_state s' = kLinkPending) ->
  lease_ok (m_lease e') -> ep_inv e'.
Proof.
  intros Hinv Hs Hops Hnext Hact Hok Hid Ha Hl.
  assert (i < length (m_operations e))%nat as Hi by (by eapply lookup_lt_Some).
  constructor; try done; rewrite ?Hops, ?Hnext.
  - rewrite length_insert. apply (inv_len e Hinv).
  - intros j t [(-> & <- & _)|[Hne Ht]]%list_lookup_insert_Some; [done|].
    pose proof (inv_slot e Hinv j t Ht) as Htok. unfold slot_ok in *. destruct (o_used t); [|done].
    destruct Htok as (Hr & Hst & Hint). split; [done|]. split; [|done].
    destruct Hst as [?|[[? Hja]|?]]; [by left| |by right; right]. right. left. split; [done|].
    destruct Hact as [->|[[-> [?|?]]|[? ->]]]; congruence.
  - intros j Hj. destruct (decide (i = j)) as [<-|Hne].
    + destruct (Ha Hj). exists s'. by rewrite list_lookup_insert_eq.
    + rewrite list_lookup_insert_ne by done. apply (inv_active e Hinv).
      destruct Hact as [Hact|[[Hact _]|[_ Hact]]]; congruence.
  - intros j k t u [(-> & <- & _)|[Hne Ht]]%list_lookup_insert_Some
      [(-> & <- & _)|[Hne' Hu]]%list_lookup_insert_Some Hut Huu Heq; [done| | |by eapply inv_ids].
    + destruct (Hid Hut) as [? Hids]. eapply inv_ids; eauto. congruence.
    + destruct (Hid Huu) as [? Hids]. symmetry. eapply inv_ids; eauto. congruence.
  - apply (inv_next e Hinv).
Qed.

Lemma inv_lease_change e e' :
  ep_inv e -> m_operations e' = m_operations e -> m_next_request_id e' = m_next_request_id e ->
  m_active_operation e' = m_active_operation e -> lease_ok (m_lease e') -> ep_inv e'.
Proof.
  intros [] Ho Hn Ha Hl. constructor; rewrite ?Ho, ?Hn, ?Ha; done.
Qed.

(** [s_finalize] by its effects. *)
Definition finalized (c : wl_rpc_completion_t) (response : option Response) (s : OperationSlot)
    : OperationSlot :=
  let x := if decide (c_status c = WL_RPC_SUCCESS) then extract (o_request s) response
           else extracted true in
  final_slot c (final_status (x_valid x) (completion_state (c_status c)) (c_rejection c)) x s.

Lemma final_lease_frame clock s x e :
  m_operations (final_lease clock s x e) = m_operations e /\
  m_active_operation (final_lease clock s x e) = m_active_operation e /\
  m_next_request_id (final_lease clock s x e) = m_next_request_id e /\
  m_running (final_lease clock s x e) = m_running e /\
  m_command_capabilities (final_lease clock s x e) = m_command_capabilities e.
Proof.
  unfold final_lease. destruct (m_running e) eqn:?; simpl; [|done].
  destruct (o_kind s); try done; destruct decide; done.
Qed.

Lemma with_caps_frame kind (i : option FixedDeviceInfo) st e e' :
  e' = match kind, i with
       | kGetDeviceInfo, Some info =>
           if decide (st = kOk) then with_caps (fi_command_capabilities info) e else e
       | _, _ => e
       end ->
  m_operations e' = m_operations e /\ m_active_operation e' = m_active_operation e /\
  m_next_request_id e' = m_next_request_id e /\ m_running e' = m_running e /\
  m_lease e' = m_lease e.
Proof. intros ->. destruct kind; try done. destruct i; [|done]. destruct decide; done. Qed.

Lemma finalize_frame clock i c response e s :
  m_operations e !! i = Some s ->
  m_operations (s_finalize clock i c response e) =
    <[i := if o_internal s then slot0 else finalized c response s]> (m_operations e) /\
  m_active_operation (s_finalize clock i c response e) =
    (if decide (m_active_operation e = Some i) then None else m_active_operation e) /\
  m_next_request_id (s_finalize clock i c response e) = m_next_request_id e /\
  m_running (s_finalize clock i c response e) = m_running e.
Proof.
  intros Hs. unfold s_finalize. rewrite Hs. cbv zeta.
  match goal with |- context [set_slot i ?sf (match o_kind s with _ => _ end)] =>
    set (fs := sf) end.
  match goal with |- context [set_slot i fs ?e1] => remember e1 as ec eqn:Hec end.
  apply with_caps_frame in Hec as (Ho & Ha & Hn & Hr & _).
  match goal with |- context [final_lease clock fs ?x _] => set (xx := x) end.
  destruct (final_lease_frame clock fs xx (set_slot i fs ec)) as (Fo & Fa & Fn & Fr & _).
  simpl in Fo, Fa, Fn, Fr. rewrite Ho in Fo. rewrite Ha in Fa. rewrite Hn in Fn. rewrite Hr in Fr.
  rewrite Fa. destruct (decide (m_active_operation e = Some i)); destruct (o_internal s); simpl;
    rewrite ?Fo, ?Fa, ?Fn, ?Fr, ?list_insert_insert_eq; done.
Qed.

Lemma finalized_fields c response s :
  o_used (finalized c response s) = o_used s /\
  o_request_id (finalized c response s) = o_request_id s /\
  s_terminal (o_state (finalized c response s)) = true /\
  o_internal (finalized c response s) = o_internal s /\ o_kind (finalized c response s) = o_kind s.
Proof. unfold finalized. cbn. destruct (c_status c); done. Qed.

(** A successful acquisition carries a token and a usable duration. *)
Lemma final_status_ok valid st domain :
  final_status valid st domain = kOk <-> valid = true /\ st = kCompleted /\ domain = 0.
Proof.
  unfold final_status. destruct valid, st; simpl; try (split; [done|by intros (? & ? & ?)]).
  destruct (Z.eqb_spec domain 0); split; try done. by intros (_ & _ & ?).
Qed.

Lemma acquire_valid r response :
  response_typed kAcquireLease response -> x_valid (extract r response) = true ->
  exists w, response = Some (AcquireResponse w) /\
    x_granted_token (extract r response) <> 0 /\ x_granted_timeout (extract r response) <> 0 /\
    x_granted_timeout (extract r response) < 2 ^ 31.
Proof.
  destruct response as [[]|]; try done. intros _ Hv. exists w. split; [done|].
  revert Hv. simpl. unfold acquire_extract. destruct (wire_int _ "lease_token" w) as [ht tok].
  destruct (wire_int _ "granted_timeout_ms" w) as [hg g]. simpl.
  rewrite !andb_true_iff, !negb_true_iff, !Z.eqb_neq, Z.ltb_lt. tauto.
Qed.

Lemma finalized_ok c response s :
  o_status (finalized c response s) = kOk ->
  c_status c = WL_RPC_SUCCESS /\ x_valid (extract (o_request s) response) = true /\ c_rejection c = 0.
Proof.
  unfold finalized. cbn. rewrite final_status_ok. intros (Hv & Hc & Hr).
  destruct (c_status c); try done.
Qed.

Lemma finalize_lease clock i c response e s :
  m_operations e !! i = Some s ->
  m_lease (s_finalize clock i c response e) =
    if negb (m_running e) then lease_cancelled
    else
      match o_kind s with
      | kAcquireLease =>
          if decide (o_status (finalized c response s) = kOk) then
            {| l_state := kHeld; l_status := kOk; l_domain_status := c_rejection c;
               l_token := x_granted_token (extract (o_request s) response);
               l_granted_timeout_ms := x_granted_timeout (extract (o_request s) response) |}
          else lease_lost (if decide (c_status c = WL_RPC_TIMED_OUT) then kExpired else kFailed)
                 (o_status (finalized c response s)) (c_rejection c)
      | kReleaseLease =>
          if decide (o_status (finalized c response s) = kOk) then lease0
          else lease_lost kFailed (o_status (finalized c response s)) (c_rejection c)
      | _ => m_lease e
      end.
Proof.
  intros Hs. unfold s_finalize. rewrite Hs. cbv zeta. change (final_slot _ _ _ s) with (finalized c response s).
  match goal with |- context [set_slot i (finalized c response s) ?e1] => remember e1 as ec eqn:Hec end.
  apply with_caps_frame in Hec as (Ho & Ha & Hn & Hr & Hl).
  match goal with |- context [final_lease clock _ ?x _] => set (xx := x) end.
  set (e2 := final_lease _ _ _ _).
  transitivity (m_lease e2); [by destruct (decide (m_active_operation e2 = Some i)), (o_internal s)|]. subst e2.
  unfold final_lease. cbn [m_running set_slot with_ops]. rewrite Hr.
  destruct (m_running e); [|done]. cbn [negb]. pose proof (finalized_fields c response s) as (_ & _ & _ & _ & ->).
  destruct (o_kind s) eqn:Hk; try done.
  - destruct (decide (o_status (finalized c response s) = kOk)) as [Hok|Hok].
    + pose proof (finalized_ok _ _ _ Hok) as (Hc & _ & _). subst xx. rewrite Hc. done.
    + cbn. destruct (c_status c); done.
  - destruct (decide (o_status (finalized c response s) = kOk)); done.
Qed.

Lemma finalize_lease_ok clock i c response e s :
  m_operations e !! i = Some s -> response_typed (o_kind s) response ->
  lease_ok (m_lease e) -> lease_ok (m_lease (s_finalize clock i c response e)).
Proof.
  intros Hs Ht Hl. rewrite (finalize_lease _ _ _ _ _ _ Hs). destruct (m_running e); [|done]. cbn [negb].
  destruct (o_kind s) eqn:Hk; try done; destruct decide as [Hok|Hok]; try done.
  - apply finalized_ok in Hok as (_ & Hv & _). destruct (acquire_valid _ _ Ht Hv) as (w & _ & ? & ? & ?).
    done.
  - by destruct (c_status c).
Qed.

Lemma finalize_inv clock i c response e s :
  ep_inv e -> m_operations e !! i = Some s -> o_used s = true -> response_typed (o_kind s) response ->
  ep_inv (s_finalize clock i c response e).
Proof.
  intros Hinv Hs Hu Ht. destruct (finalize_frame clock i c response e s Hs) as (Ho & Ha & Hn & Hr).
  pose proof (finalized_fields c response s) as (Fu & Fid & Fterm & Fint & _).
  eapply inv_update; [exact Hinv|exact Hs|exact Ho|exact Hn| | | | |].
  - rewrite Ha. destruct decide; auto.
  - pose proof (inv_slot e Hinv i s Hs) as Hok. unfold slot_ok in *. rewrite Hu in Hok.
    destruct (o_internal s) eqn:Hi; [done|]. rewrite Fu, Fid, Hu, Fint. split_and!; try apply Hok; auto.
  - destruct (o_internal s); [done|]. by rewrite Fu, Fid.
  - rewrite Ha. destruct decide; [done|]. by intros ?.
  - eapply finalize_lease_ok; [done|done|apply (inv_lease e Hinv)].
Qed.

(** [s_submit] either refuses without a change or queues the operation. *)
Definition submit_lease (kind : RpcKind) (internal : bool) (request : OperationRequest)
    (l : FciControlLeaseSnapshot) : FciControlLeaseSnapshot :=
  match kind with
  | kAcquireLease => lease_queued (if renews internal request then kRenewQueued else kAcquireQueued) l
  | kReleaseLease => lease_queued kReleaseQueued l
  | _ => l
  end.

Lemma submit_cases upgrading clock kind timeout request internal e :
  (exists st, s_submit upgrading clock kind timeout request internal e = ((st, 0), e) /\ st <> kOk) \/
  (upgrading = true -> upgrade_safe kind = true) /\ m_running e = true /\
  exists i e', s_allocateSlot internal e = Some i /\
    s_submit upgrading clock kind timeout request internal e = ((kOk, m_next_request_id e), e') /\
    m_operations e' = <[i := queued_op clock (m_next_request_id e) kind timeout request internal]>
      (m_operations e) /\
    m_active_operation e' = m_active_operation e /\ m_running e' = m_running e /\
    m_next_request_id e' = (let n := u64 (m_next_request_id e + 1) in if n =? 0 then 1 else n) /\
    m_lease e' = submit_lease kind internal request (m_lease e) /\
    m_lease_renew_at_ms e' = m_lease_renew_at_ms e /\
    m_lease_expire_at_ms e' = m_lease_expire_at_ms e.
Proof.
  unfold s_submit. destruct (upgrading && negb (upgrade_safe kind)) eqn:Hu; [by left; exists kBusy|].
  destruct (m_running e) eqn:Hr; [|by left; exists kNotReady]. cbn [negb].
  destruct (s_allocateSlot internal e) as [i|]; [|by left; exists kQueueFull].
  right. split; [intros ->; by destruct (upgrade_safe kind)|]. split; [done|].
  exists i. eexists. split; [done|]. split; [reflexivity|]. by destruct kind.
Qed.

Lemma next_id e : ep_inv e -> ids_left e ->
  (let n := u64 (m_next_request_id e + 1) in if n =? 0 then 1 else n) = m_next_request_id e + 1.
Proof.
  intros Hinv Hl. pose proof (inv_next e Hinv). unfold ids_left in Hl. cbv zeta.
  assert (u64 (m_next_request_id e + 1) = m_next_request_id e + 1) as -> by (apply Z.mod_small; lia).
  destruct (Z.eqb_spec (m_next_request_id e + 1) 0); lia.
Qed.

Lemma submit_inv upgrading clock kind timeout request internal e :
  ep_inv e -> ids_left e -> ep_inv (snd (s_submit upgrading clock kind timeout request internal e)).
Proof.
  intros Hinv Hleft.
  destruct (submit_cases upgrading clock kind timeout request internal e)
    as [(st & -> & _)|(_ & _ & i & e' & Hal & -> & Ho & Ha & _ & Hn & Hl & _ & _)]; [done|].
  apply (allocate_some _ _ _ Hinv) in Hal as (Hs & Hi & Hi7). rewrite (next_id e Hinv Hleft) in Hn.
  unfold ids_left in Hleft. pose proof (inv_next e Hinv) as Hnext. cbn [snd].
  assert (i < length (m_operations e))%nat as Hi' by (by eapply lookup_lt_Some).
  assert (forall j s, m_operations e !! j = Some s -> o_used s = true ->
    1 <= o_request_id s < m_next_request_id e) as Hids.
  { intros j s Hj Hu. pose proof (inv_slot e Hinv j s Hj) as Hok. unfold slot_ok in Hok.
    rewrite Hu in Hok. apply Hok. }
  constructor; rewrite ?Ho, ?Ha, ?Hn.
  - rewrite length_insert. apply (inv_len e Hinv).
  - intros j s [(-> & <- & _)|[Hne Hj]]%list_lookup_insert_Some.
    + unfold slot_ok. cbn. split; [lia|]. auto.
    + pose proof (inv_slot e Hinv j s Hj) as Hok. unfold slot_ok in *. destruct (o_used s); [|done].
      split; [lia|]. apply Hok.
  - intros j Hj. destruct (inv_active e Hinv j Hj) as (s & Hs' & Hu & Hst).
    exists s. rewrite list_lookup_insert_ne; [done|]. intros ->. rewrite Hs in Hs'. by injection Hs' as <-.
  - intros j k s t [(-> & <- & _)|[Hne Hj]]%list_lookup_insert_Some
      [(-> & <- & _)|[Hne' Hk]]%list_lookup_insert_Some Hus Hut Heq; [done| | |by eapply inv_ids].
    + pose proof (Hids k t Hk Hut). cbn in Heq. lia.
    + pose proof (Hids j s Hj Hus). cbn in Heq. lia.
  - lia.
  - rewrite Hl. pose proof (inv_lease e Hinv) as Hlo. destruct kind; try done; cbn; by destruct renews.
Qed.

Lemma submit_ids_left upgrading clock kind timeout request internal e :
  ep_inv e -> ids_left e ->
  m_next_request_id e <= m_next_request_id (snd (s_submit upgrading clock kind timeout request internal e))
    <= m_next_request_id e + 1.
Proof.
  intros Hinv Hleft.
  destruct (submit_cases upgrading clock kind timeout request internal e)
    as [(st & -> & _)|(_ & _ & i & e' & _ & -> & _ & _ & _ & Hn & _)]; cbn [snd]; [lia|].
  rewrite Hn, next_id by done. lia.
Qed.

(** The passes of the owner. *)
Lemma expire_slot_inv clock now e i : ep_inv e -> ep_inv (expire_slot clock now e i).
Proof.
  intros Hinv. unfold expire_slot. destruct (m_operations e !! i) as [s|] eqn:Hs; simpl; [|done].
  destruct (queue_expired now s) eqn:Hq; [|done]. apply andb_prop in Hq as [[Hu _]%is_queued_spec _].
  by eapply finalize_inv.
Qed.

Lemma expire_queue_ind (P : FciWirelinkEndpoint -> Prop) clock now e :
  P e -> (forall e i, P e -> (i < 8)%nat -> P (expire_slot clock now e i)) ->
  P (expire_queue clock now e).
Proof.
  intros H0 HI. unfold expire_queue. unfold s_kOperationCapacity.
  assert (forall l, Forall (fun i => (i < 8)%nat) l -> forall e, P e -> P (foldl (expire_slot clock now) e l)) as H.
  { induction 1 as [|i l Hi _ IH]; intros e'; [done|]. intros. apply IH, HI; done. }
  apply H; [|done]. apply Forall_forall. intros i ?%in_seq. lia.
Qed.

Lemma expire_queue_inv clock now e : ep_inv e -> ep_inv (expire_queue clock now e).
Proof. intros Hinv. apply expire_queue_ind; [done|]. intros. by apply expire_slot_inv. Qed.

Lemma expire_lease_inv now e : ep_inv e -> ep_inv (expire_lease now e).
Proof.
  intros Hinv. unfold expire_lease. destruct (_ && _); [|done]. by eapply inv_lease_change.
Qed.

Lemma starting_lease_frame s e :
  m_operations (starting_lease s e) = m_operations e /\
  m_active_operation (starting_lease s e) = m_active_operation e /\
  m_next_request_id (starting_lease s e) = m_next_request_id e /\
  m_running (starting_lease s e) = m_running e /\
  (lease_ok (m_lease e) -> lease_ok (m_lease (starting_lease s e))) /\
  l_token (m_lease (starting_lease s e)) = l_token (m_lease e).
Proof.
  unfold starting_lease. destruct (o_kind s); try done.
  cbn. by destruct renews.
Qed.

(** [s_startNext], branch by branch. *)
Section start_next.
Context (start_rpc : wlc_desc -> wstruct -> Z -> wl_result) (clock now : Z).

(** The operation that is tried, after it was marked. *)
Definition marked (i : nat) (s : OperationSlot) (e : FciWirelinkEndpoint) : FciWirelinkEndpoint :=
  starting_lease (op_state kLinkPending s)
    (set_slot i (op_state kLinkPending s) (with_active (Some i) e)).
(** ... and after its admission failed. *)
Definition unmarked (i : nat) (s : OperationSlot) (e : FciWirelinkEndpoint) : FciWirelinkEndpoint :=
  set_slot i (op_state kQueued (op_state kLinkPending s)) (with_active None (marked i s e)).

Inductive start_result (e : FciWirelinkEndpoint) : bool * FciWirelinkEndpoint -> Prop :=
| start_busy i : m_active_operation e = Some i -> start_result e (false, e)
| start_empty : m_active_operation e = None -> s_findQueuedSlot e = None -> start_result e (false, e)
| start_late i s :
    m_active_operation e = None -> s_findQueuedSlot e = Some i -> m_operations e !! i = Some s ->
    s_queueRemaining now (o_submitted_at_ms s) (o_timeout_ms s) = 0 ->
    start_result e (true, s_finalize clock i (completed_with WL_RPC_TIMED_OUT) None (marked i s e))
| start_ok i s :
    m_active_operation e = None -> s_findQueuedSlot e = Some i -> m_operations e !! i = Some s ->
    s_queueRemaining now (o_submitted_at_ms s) (o_timeout_ms s) <> 0 ->
    started start_rpc s (s_queueRemaining now (o_submitted_at_ms s) (o_timeout_ms s)) = WL_OK ->
    start_result e (true, set_slot i (op_admitted (op_state kLinkPending s)) (marked i s e))
| start_retry i s r :
    m_active_operation e = None -> s_findQueuedSlot e = Some i -> m_operations e !! i = Some s ->
    s_queueRemaining now (o_submitted_at_ms s) (o_timeout_ms s) <> 0 ->
    started start_rpc s (s_queueRemaining now (o_submitted_at_ms s) (o_timeout_ms s)) = r ->
    r = WL_ERR_BUSY \/ r = WL_ERR_WOULD_BLOCK -> start_result e (false, unmarked i s e)
| start_failed i s r :
    m_active_operation e = None -> s_findQueuedSlot e = Some i -> m_operations e !! i = Some s ->
    s_queueRemaining now (o_submitted_at_ms s) (o_timeout_ms s) <> 0 ->
    started start_rpc s (s_queueRemaining now (o_submitted_at_ms s) (o_timeout_ms s)) = r ->
    r <> WL_OK -> r <> WL_ERR_BUSY -> r <> WL_ERR_WOULD_BLOCK ->
    start_result e (false,
      s_finalize clock i (completed_with WL_RPC_FAILED) None (unmarked i s e)).

Lemma startNext_cases e : start_result e (s_startNext start_rpc clock now e).
Proof.
  unfold s_startNext. destruct (m_active_operation e) as [i|] eqn:Ha; [by eapply start_busy|].
  destruct (s_findQueuedSlot e) as [i|] eqn:Hf; [|by apply start_empty].
  destruct (findQueuedSlot_some e i Hf) as (s & Hs & Hq & Hold). rewrite Hs. cbn [default from_option id].
  cbv zeta. cbn [o_submitted_at_ms o_timeout_ms op_state].
  destruct (Z.eqb_spec (s_queueRemaining now (o_submitted_at_ms s) (o_timeout_ms s)) 0) as [Hz|Hz];
    [by eapply start_late|].
  change (started start_rpc (op_state kLinkPending s)) with (started start_rpc s).
  destruct (started start_rpc s _) eqn:Hst;
    solve [by eapply start_ok | eapply start_retry; eauto | eapply start_failed; eauto; done].
Qed.

Lemma marked_frame i s e :
  m_operations (marked i s e) = <[i := op_state kLinkPending s]> (m_operations e) /\
  m_active_operation (marked i s e) = Some i /\
  m_next_request_id (marked i s e) = m_next_request_id e /\
  m_running (marked i s e) = m_running e /\
  (lease_ok (m_lease e) -> lease_ok (m_lease (marked i s e))) /\
  l_token (m_lease (marked i s e)) = l_token (m_lease e).
Proof.
  unfold marked. destruct (starting_lease_frame (op_state kLinkPending s)
    (set_slot i (op_state kLinkPending s) (with_active (Some i) e))) as (-> & -> & -> & -> & ? & ->).
  done.
Qed.

Lemma unmarked_frame i s e :
  m_operations (unmarked i s e) = <[i := op_state kQueued s]> (m_operations e) /\
  m_active_operation (unmarked i s e) = None /\
  m_next_request_id (unmarked i s e) = m_next_request_id e /\
  m_running (unmarked i s e) = m_running e /\
  (lease_ok (m_lease e) -> lease_ok (m_lease (unmarked i s e))) /\
  l_token (m_lease (unmarked i s e)) = l_token (m_lease e).
Proof.
  destruct (marked_frame i s e) as (Ho & _ & ? & ? & ? & ?). unfold unmarked. cbn.
  by rewrite Ho, list_insert_insert_eq.
Qed.

Lemma slot_facts e i s : ep_inv e -> m_operations e !! i = Some s -> o_used s = true ->
  1 <= o_request_id s < m_next_request_id e /\ (i = 7%nat -> o_internal s = true).
Proof.
  intros Hinv Hs Hu. pose proof (inv_slot e Hinv i s Hs) as Hok. unfold slot_ok in Hok.
  rewrite Hu in Hok. tauto.
Qed.

Lemma startNext_inv e : ep_inv e -> ep_inv (snd (s_startNext start_rpc clock now e)).
Proof.
  intros Hinv.
  assert (forall i s e', s_findQueuedSlot e = Some i -> m_operations e !! i = Some s ->
    m_active_operation e = None ->
    m_operations e' = <[i := op_state kLinkPending s]> (m_operations e) \/
    (exists s', m_operations e' = <[i := s']> (m_operations e) /\
       s' = op_admitted (op_state kLinkPending s)) ->
    m_active_operation e' = Some i -> m_next_request_id e' = m_next_request_id e ->
    lease_ok (m_lease e') -> ep_inv e') as Hmark.
  { intros i s e' Hf Hs Ha Ho Ha' Hn Hl. destruct (findQueuedSlot_some e i Hf) as (s0 & Hs0 & Hq & _).
    rewrite Hs in Hs0. injection Hs0 as <-. apply is_queued_spec in Hq as [Hu _].
    destruct (slot_facts e i s Hinv Hs Hu).
    destruct Ho as [Ho|(s' & Ho & ->)]; (eapply inv_update;
      [exact Hinv|exact Hs|exact Ho|exact Hn|by auto| | | |exact Hl]);
      try (by intros; split; cbn); unfold slot_ok; cbn; rewrite Hu, Ha'; split_and!; auto; lia. }
  assert (forall i s, s_findQueuedSlot e = Some i -> m_operations e !! i = Some s ->
    m_active_operation e = None -> ep_inv (marked i s e)) as Hm.
  { intros i s Hf Hs Ha. destruct (marked_frame i s e) as (? & ? & ? & ? & Hlo & _).
    eapply Hmark; eauto. apply Hlo, (inv_lease e Hinv). }
  assert (forall i s, s_findQueuedSlot e = Some i -> m_operations e !! i = Some s ->
    m_active_operation e = None -> ep_inv (unmarked i s e) /\ o_used s = true) as Hun.
  { intros i s Hf Hs Ha. destruct (unmarked_frame i s e) as (Ho & Ha' & Hn & ? & Hlo & _).
    destruct (findQueuedSlot_some e i Hf) as (s0 & Hs0 & Hq & _).
    rewrite Hs in Hs0. injection Hs0 as <-. apply is_queued_spec in Hq as [Hu _].
    destruct (slot_facts e i s Hinv Hs Hu). split; [|done].
    eapply inv_update; [exact Hinv|exact Hs|exact Ho|exact Hn| | | | |]; try done.
    - left. congruence.
    - unfold slot_ok. cbn. rewrite Hu. auto.
    - apply Hlo, (inv_lease e Hinv). }
  assert (forall i s s', m_operations e !! i = Some s ->
    m_operations (set_slot i s' e) !! i = Some s') as Hlook.
  { intros i s s' Hs. cbn. apply list_lookup_insert_eq. by eapply lookup_lt_Some. }
  destruct (startNext_cases e) as [i ?|? ?|i s Ha Hf Hs Hz|i s Ha Hf Hs Hz Hr|i s r Ha Hf Hs Hz Hr Hb
    |i s r Ha Hf Hs Hz Hr H1 H2 H3]; cbn [snd]; try done.
  - destruct (Hun i s Hf Hs Ha) as [_ Hu]. destruct (marked_frame i s e) as (Ho & _).
    eapply (finalize_inv _ i _ None _ (op_state kLinkPending s)); [by apply Hm| |done|done].
    rewrite Ho. by apply (Hlook i s).
  - destruct (marked_frame i s e) as (Ho & Ha' & Hn & Hr' & Hlo & _).
    eapply (Hmark i s); try done.
    + right. eexists. split; [|done]. cbn. by rewrite Ho, list_insert_insert_eq.
    + cbn. apply Hlo, (inv_lease e Hinv).
  - by apply Hun.
  - destruct (Hun i s Hf Hs Ha) as [Hinv' Hu]. destruct (unmarked_frame i s e) as (Ho & _).
    eapply (finalize_inv _ i _ None _ (op_state kQueued s)); [done| |done|done].
    rewrite Ho. by apply (Hlook i s).
Qed.
End start_next.

Lemma schedule_cases submit_upgrading submit_clock now e :
  s_scheduleRenewal submit_upgrading submit_clock now e = (false, e) \/
  l_state (m_lease e) = kHeld /\ l_token (m_lease e) <> 0 /\ s_until now (m_lease_renew_at_ms e) = 0 /\
  snd (s_scheduleRenewal submit_upgrading submit_clock now e) =
    snd (s_submit submit_upgrading submit_clock kAcquireLease (m_lease_requested_timeout_ms e)
      (renewal_request (m_lease_requested_timeout_ms e) (l_token (m_lease e))) true e).
Proof.
  unfold s_scheduleRenewal. cbv zeta.
  destruct (bool_decide (l_state (m_lease e) = kHeld)) eqn:Hh; [|by left].
  destruct (Z.eqb_spec (l_token (m_lease e)) 0) as [|Ht]; [by left|].
  destruct (Z.eqb_spec (s_until now (m_lease_renew_at_ms e)) 0) as [Hz|]; [|by left]. cbn [negb orb].
  apply bool_decide_eq_true in Hh. right. split_and!; try done.
  by destruct (s_submit _ _ _ _ _ _ e) as [[? ?] ?].
Qed.

Lemma schedule_inv submit_upgrading submit_clock now e :
  ep_inv e -> ids_left e -> ep_inv (snd (s_scheduleRenewal submit_upgrading submit_clock now e)).
Proof.
  intros Hinv Hl. destruct (schedule_cases submit_upgrading submit_clock now e) as [->|(_ & _ & _ & ->)];
    [done|by apply submit_inv].
Qed.

Lemma expire_slot_next clock now e i : m_next_request_id (expire_slot clock now e i) = m_next_request_id e.
Proof.
  unfold expire_slot. destruct (m_operations e !! i) as [s|] eqn:Hs; simpl; [|done].
  destruct queue_expired; [|done]. by destruct (finalize_frame clock i (completed_with WL_RPC_TIMED_OUT)
    None e s Hs) as (_ & _ & -> & _).
Qed.

Lemma expire_queue_next clock now e : m_next_request_id (expire_queue clock now e) = m_next_request_id e.
Proof.
  apply (expire_queue_ind (fun e' => m_next_request_id e' = m_next_request_id e)); [done|].
  intros e' i <- _. apply expire_slot_next.
Qed.

Lemma expire_lease_frame now e :
  m_operations (expire_lease now e) = m_operations e /\
  m_active_operation (expire_lease now e) = m_active_operation e /\
  m_next_request_id (expire_lease now e) = m_next_request_id e /\
  m_running (expire_lease now e) = m_running e.
Proof. unfold expire_lease. by destruct (_ && _). Qed.

(** The state that [s_progress] hands to [s_startNext]. *)
Definition progressed (upgrading submit_upgrading : bool) (clock submit_clock now : Z)
    (e : FciWirelinkEndpoint) : FciWirelinkEndpoint :=
  let e1 := expire_lease now (expire_queue clock now e) in
  if upgrading then with_lease lease0 e1
  else snd (s_scheduleRenewal submit_upgrading submit_clock now e1).

Lemma progressed_inv upgrading submit_upgrading clock submit_clock now e :
  ep_inv e -> ids_left e -> ep_inv (progressed upgrading submit_upgrading clock submit_clock now e).
Proof.
  intros Hinv Hl. assert (ep_inv (expire_lease now (expire_queue clock now e))) as H1
    by (by apply expire_lease_inv, expire_queue_inv).
  unfold progressed. cbv zeta. revert H1. set (e1 := expire_lease _ _). intros H1.
  destruct upgrading; [by apply (inv_lease_change e1)|]. apply schedule_inv; [done|].
  unfold ids_left, e1. destruct (expire_lease_frame now (expire_queue clock now e)) as (_ & _ & -> & _).
  by rewrite expire_queue_next.
Qed.

Lemma take_cases {A} accepts (value : OperationSlot -> option A) id e :
  snd (take_slot accepts value id e) = e \/
  exists i s, s_findSlot id e = Some i /\ m_operations e !! i = Some s /\ accepts (o_kind s) = true /\
    s_terminal (o_state s) = true /\ snd (take_slot accepts value id e) = set_slot i slot0 e.
Proof.
  unfold take_slot. destruct (s_findSlot id e) as [i|] eqn:Hf; [|by left].
  destruct (findSlot_some id e i Hf) as (s & Hs & Hu & Hid). rewrite Hs.
  change (default slot0 (Some s)) with s.
  destruct (accepts (o_kind s)) eqn:Hac; [|by left]. destruct (s_terminal (o_state s)) eqn:Hterm; [|by left].
  right. exists i, s. split_and!; trivial.
Qed.

Lemma active_not_terminal e i s : ep_inv e -> m_active_operation e = Some i ->
  m_operations e !! i = Some s -> s_terminal (o_state s) = true -> False.
Proof.
  intros Hinv Ha Hs Ht. destruct (inv_active e Hinv i Ha) as (s' & Hs' & _ & Hst).
  rewrite Hs in Hs'. injection Hs' as <-. by rewrite Hst in Ht.
Qed.

Lemma take_inv {A} accepts (value : OperationSlot -> option A) id e :
  ep_inv e -> ep_inv (snd (take_slot accepts value id e)).
Proof.
  intros Hinv. destruct (take_cases accepts value id e) as [->|(i & s & _ & Hs & _ & Ht & ->)]; [done|].
  eapply inv_update; [exact Hinv|exact Hs|reflexivity|reflexivity|by left|done|done| |apply (inv_lease e Hinv)].
  intros Ha. by destruct (active_not_terminal e i s Hinv Ha Hs Ht).
Qed.

Lemma running_inv r e : ep_inv e -> ep_inv (with_running r e).
Proof. intros []. by constructor. Qed.

Lemma stop_slot_cases s :
  stop_slot s = (if is_queued s then if o_internal s then slot0 else op_cancelled s else s).
Proof.
  unfold stop_slot, is_queued. destruct (o_used s); [|done]. cbn [negb orb andb].
  destruct (o_state s) eqn:Hst; done.
Qed.

Lemma stop_inv e : ep_inv e -> ep_inv (s_stopOnOwner e).
Proof.
  intros Hinv.
  assert (forall i s, m_operations (s_stopOnOwner e) !! i = Some s ->
    exists t, m_operations e !! i = Some t /\ s = stop_slot t) as Hlook.
  { intros i s Hs. cbn in Hs. rewrite list_lookup_fmap in Hs.
    destruct (m_operations e !! i) as [t|]; [|done]. injection Hs as <-. by exists t. }
  assert (forall t, o_used (stop_slot t) = true -> o_used t = true /\
    o_request_id (stop_slot t) = o_request_id t) as Hid.
  { intros t. rewrite stop_slot_cases. destruct (is_queued t) eqn:Hq; [|done].
    apply is_queued_spec in Hq as [Hu _]. by destruct (o_internal t). }
  constructor.
  - cbn. rewrite length_map. apply (inv_len e Hinv).
  - intros i s (t & Ht & ->)%Hlook. pose proof (inv_slot e Hinv i t Ht) as Hok.
    rewrite stop_slot_cases. destruct (is_queued t) eqn:Hq; [|exact Hok].
    apply is_queued_spec in Hq as [Hu Hst]. unfold slot_ok in *. rewrite Hu in Hok.
    destruct (o_internal t) eqn:Hint; cbn; [done|]. rewrite Hu, Hint in *. split; [apply Hok|].
    split; [|apply Hok]. right. right. done.
  - intros i (t & Ht & Hu & Hst)%(inv_active e Hinv). exists t. split; [|done]. cbn.
    rewrite list_lookup_fmap, Ht. cbn. rewrite stop_slot_cases. unfold is_queued. rewrite Hst. cbn.
    by rewrite andb_false_r.
  - intros i j s t (s' & Hs & ->)%Hlook (t' & Ht & ->)%Hlook [Hu Hi]%Hid [Hu' Hi']%Hid Heq.
    eapply inv_ids; eauto. congruence.
  - apply (inv_next e Hinv).
  - done.
Qed.

Lemma step_inv e e' : ep_inv e -> ep_step e e' -> ep_inv e'.
Proof.
  intros Hinv Hstep. destruct Hstep.
  - by apply submit_inv.
  - apply startNext_inv. by apply progressed_inv.
  - destruct (inv_active e Hinv i ltac:(done)) as (s' & Hs' & Hu & _).
    assert (s = s') as -> by congruence. by eapply finalize_inv.
  - by apply take_inv.
  - by apply running_inv.
  - by apply stop_inv.
Qed.

Lemma reachable_inv e : reachable e -> ep_inv e.
Proof. intros Hr. eapply (steps_invariant ep_step ep_inv); [apply step_inv|exact Hr|apply inv_init]. Qed.
