(* ===== verification/EndpointProps.v ===== *)
(** * The device endpoint: theorems

    What the endpoint promises its users, for every reachable state of
    [EndpointInv.v]. *)

From Stdlib Require Import String.
From S2P Require Import Prelude WlcWire WlcSchema WlcCodec FciMessages DeviceTypes Endpoint EndpointOps.
From S2P Require Import EndpointInv.

(** ** What a pass does to a slot *)

Lemma expire_slot_lookup clock now e i j s :
  m_operations e !! j = Some s ->
  m_operations (expire_slot clock now e i) !! j =
    Some (if decide (i = j) then
            if queue_expired now s then
              if o_internal s then slot0 else finalized (completed_with WL_RPC_TIMED_OUT) None s
            else s
          else s).
Proof.
  intros Hs. unfold expire_slot. destruct (decide (i = j)) as [->|Hne].
  - rewrite Hs. change (default slot0 (Some s)) with s. destruct (queue_expired now s); [|done].
    destruct (finalize_frame clock j (completed_with WL_RPC_TIMED_OUT) None e s Hs) as (-> & _).
    apply list_lookup_insert_eq. by eapply lookup_lt_Some.
  - destruct (m_operations e !! i) as [t|] eqn:Ht; [|done]. change (default slot0 (Some t)) with t.
    destruct (queue_expired now t); [|done].
    destruct (finalize_frame clock i (completed_with WL_RPC_TIMED_OUT) None e t Ht) as (-> & _).
    by rewrite list_lookup_insert_ne.
Qed.

Lemma expire_fold_lookup clock now l e j s :
  m_operations e !! j = Some s -> (~ In j l \/ queue_expired now s = false) ->
  m_operations (foldl (expire_slot clock now) e l) !! j = Some s.
Proof.
  revert e. induction l as [|i l IH]; intros e Hs Hq; [done|]. cbn. apply IH.
  - rewrite (expire_slot_lookup _ _ _ _ _ _ Hs). destruct (decide (i = j)) as [->|]; [|done].
    destruct Hq as [Hq| ->]; [|done]. by destruct Hq; left.
  - destruct Hq as [Hq|]; [left|by right]. contradict Hq. by right.
Qed.

Lemma expire_queue_lookup clock now e j s :
  ep_inv e -> m_operations e !! j = Some s ->
  m_operations (expire_queue clock now e) !! j =
    Some (if queue_expired now s then
            if o_internal s then slot0 else finalized (completed_with WL_RPC_TIMED_OUT) None s
          else s).
Proof.
  intros Hinv Hs. destruct (queue_expired now s) eqn:Hq; [|apply expire_fold_lookup; auto].
  assert (j < 8)%nat as Hj.
  { apply lookup_lt_Some in Hs. by rewrite (inv_len e Hinv) in Hs. }
  unfold expire_queue, s_kOperationCapacity.
  assert (seq 0 8 = seq 0 j ++ j :: seq (S j) (7 - j)) as ->.
  { change (j :: seq (S j) (7 - j)) with (seq (0 + j) (S (7 - j))). rewrite <- seq_app. f_equal. lia. }
  rewrite foldl_app. cbn [foldl]. apply expire_fold_lookup.
  - rewrite (expire_slot_lookup _ _ _ _ _ s).
    + rewrite decide_True by done. by rewrite Hq.
    + apply expire_fold_lookup; [done|]. left. intros ?%in_seq. lia.
  - left. intros ?%in_seq. lia.
Qed.

Lemma submit_lookup upgrading clock kind timeout request internal e i s :
  ep_inv e -> m_operations e !! i = Some s -> o_used s = true ->
  m_operations (snd (s_submit upgrading clock kind timeout request internal e)) !! i = Some s.
Proof.
  intros Hinv Hs Hu.
  destruct (submit_cases upgrading clock kind timeout request internal e)
    as [(st & -> & _)|(_ & _ & j & e' & Hal & -> & Ho & _)]; [done|].
  apply (allocate_some _ _ _ Hinv) in Hal as (Hj & _). cbn [snd]. rewrite Ho.
  rewrite list_lookup_insert_ne; [done|]. intros ->. rewrite Hs in Hj. by injection Hj as ->.
Qed.

Lemma progressed_lookup upgrading submit_upgrading clock submit_clock now e i s :
  ep_inv e -> m_operations (expire_queue clock now e) !! i = Some s -> o_used s = true ->
  m_operations (progressed upgrading submit_upgrading clock submit_clock now e) !! i = Some s.
Proof.
  intros Hinv Hs Hu. unfold progressed. cbv zeta.
  assert (ep_inv (expire_lease now (expire_queue clock now e))) as H1
    by (by apply expire_lease_inv, expire_queue_inv).
  destruct (expire_lease_frame now (expire_queue clock now e)) as (Ho & _). rewrite <- Ho in Hs.
  revert H1 Hs. set (e1 := expire_lease _ _). intros H1 Hs.
  destruct upgrading; [done|].
  destruct (schedule_cases submit_upgrading submit_clock now e1) as [->|(_ & _ & _ & ->)]; [done|].
  by apply submit_lookup.
Qed.

Lemma ops_set_slot i s e : m_operations (set_slot i s e) = <[i:=s]> (m_operations e).
Proof. done. Qed.

Lemma startNext_lookup start_rpc clock now e i s :
  m_operations e !! i = Some s -> is_queued s = false ->
  m_operations (snd (s_startNext start_rpc clock now e)) !! i = Some s.
Proof.
  intros Hs Hq. assert (forall j, s_findQueuedSlot e = Some j -> j <> i) as Hne.
  { intros j (t & Ht & Hqt & _)%findQueuedSlot_some ->. rewrite Hs in Ht. injection Ht as <-. congruence. }
  assert (forall j t, m_operations e !! j = Some t -> m_operations (marked j t e) !! j =
    Some (op_state kLinkPending t) /\ m_operations (unmarked j t e) !! j = Some (op_state kQueued t)) as Hj.
  { intros j t Ht%lookup_lt_Some. destruct (marked_frame j t e) as (-> & _).
    destruct (unmarked_frame j t e) as (-> & _). by rewrite !list_lookup_insert_eq. }
  destruct (startNext_cases start_rpc clock now e) as [j ?|? ?|j t Ha Hf Ht Hz|j t Ha Hf Ht Hz Hr
    |j t r Ha Hf Ht Hz Hr Hb|j t r Ha Hf Ht Hz Hr H1 H2 H3]; cbn [snd]; try done;
    pose proof (Hne j Hf) as Hji; destruct (Hj j t Ht) as [Hm Hu];
    destruct (marked_frame j t e) as (Hmo & _); destruct (unmarked_frame j t e) as (Huo & _).
  - destruct (finalize_frame clock j (completed_with WL_RPC_TIMED_OUT) None _ _ Hm) as (-> & _).
    rewrite list_lookup_insert_ne by exact Hji.
    rewrite Hmo, list_lookup_insert_ne by exact Hji. exact Hs.
  - rewrite ops_set_slot, list_lookup_insert_ne by exact Hji.
    rewrite Hmo, list_lookup_insert_ne by exact Hji. exact Hs.
  - rewrite Huo, list_lookup_insert_ne by exact Hji. exact Hs.
  - destruct (finalize_frame clock j (completed_with WL_RPC_FAILED) None _ _ Hu) as (-> & _).
    rewrite list_lookup_insert_ne by exact Hji.
    rewrite Huo, list_lookup_insert_ne by exact Hji. exact Hs.
Qed.

Lemma progress_unfold start_rpc upgrading submit_upgrading clock submit_clock now e :
  s_progress start_rpc upgrading submit_upgrading clock submit_clock now e =
  s_startNext start_rpc clock now (progressed upgrading submit_upgrading clock submit_clock now e).
Proof. unfold s_progress, progressed. reflexivity. Qed.

(** ** Queue deadlines and order *)

Lemma queue_remaining_elapsed submitted timeout age :
  0 < timeout <= age -> age < 2 ^ 31 ->
  s_queueRemaining (u32 (submitted + age)) submitted timeout = 0.
Proof.
  intros Ht Ha. unfold s_queueRemaining. rewrite swrap_elapsed by (unfold in_s; lia).
  destruct (Z.leb_spec age 0); lia.
Qed.

Lemma queue_remaining_left submitted timeout age :
  - 2 ^ 31 <= age < timeout -> timeout < 2 ^ 31 ->
  s_queueRemaining (u32 (submitted + age)) submitted timeout = timeout - Z.max 0 age.
Proof.
  intros Ht Ha. unfold s_queueRemaining. rewrite swrap_elapsed by (unfold in_s; lia).
  destruct (Z.leb_spec age 0); lia.
Qed.

(** The queue does not extend a caller's deadline: an operation that still
    waits when its timeout has passed is reported as timed out by the owner's
    next pass, whatever else the pass does, and is not sent. *)
Theorem queue_deadline start_rpc upgrading submit_upgrading clock submit_clock e i s age :
  reachable e -> m_operations e !! i = Some s -> is_queued s = true ->
  o_internal s = false -> 0 < o_timeout_ms s <= age -> age < 2 ^ 31 ->
  exists s',
    m_operations (snd (s_progress start_rpc upgrading submit_upgrading clock submit_clock
      (u32 (o_submitted_at_ms s + age)) e)) !! i = Some s' /\
    o_request_id s' = o_request_id s /\ o_state s' = kTimedOut /\ o_status s' = kTimeout /\
    o_admitted s' = o_admitted s.
Proof.
  intros Hr Hs Hq Hint Ht Ha. pose proof (reachable_inv e Hr) as Hinv.
  rewrite progress_unfold. set (now := u32 _).
  assert (queue_expired now s = true) as Hexp.
  { unfold queue_expired, now. by rewrite Hq, queue_remaining_elapsed. }
  exists (finalized (completed_with WL_RPC_TIMED_OUT) None s).
  apply is_queued_spec in Hq as [Hu _]. split; [|done].
  apply startNext_lookup; [|by unfold is_queued; rewrite andb_false_r].
  apply progressed_lookup; [done| |done].
  rewrite (expire_queue_lookup _ _ _ _ s) by done. by rewrite Hexp, Hint.
Qed.

(** Operations are sent in the order of their submission: the one that a
    pass starts has the smallest request id of those queued, no other is in
    flight, and every later submission gets a larger id. *)
Theorem queue_order start_rpc clock now e e' i :
  reachable e -> s_startNext start_rpc clock now e = (true, e') -> m_active_operation e' = Some i ->
  m_active_operation e = None /\
  exists s s', m_operations e !! i = Some s /\ is_queued s = true /\
    m_operations e' !! i = Some s' /\ o_request_id s' = o_request_id s /\
    o_state s' = kLinkPending /\ o_admitted s' = true /\
    (forall j t, m_operations e !! j = Some t -> is_queued t = true ->
       o_request_id s <= o_request_id t < m_next_request_id e).
Proof.
  intros Hr Hst Hact. pose proof (reachable_inv e Hr) as Hinv.
  pose proof (startNext_cases start_rpc clock now e) as Hc. rewrite Hst in Hc.
  assert (forall j s, s_findQueuedSlot e = Some j -> m_operations e !! j = Some s ->
    is_queued s = true /\ forall k t, m_operations e !! k = Some t -> is_queued t = true ->
      o_request_id s <= o_request_id t < m_next_request_id e) as Hf.
  { intros j s (s0 & Hs0 & Hq & Hall)%findQueuedSlot_some Hs. rewrite Hs in Hs0. injection Hs0 as <-.
    split; [done|]. intros k t Ht Hqt. split; [by eapply Hall|].
    apply is_queued_spec in Hqt as [Hut _]. by destruct (slot_facts e k t Hinv Ht Hut) as [[_ ?] _]. }
  inversion Hc as [| |j s Ha Hfj Hs Hz|j s Ha Hfj Hs Hz Hr'| |]; subst e'.
  - destruct (marked_frame j s e) as (Hmo & Hma & _).
    destruct (finalize_frame clock j (completed_with WL_RPC_TIMED_OUT) None (marked j s e)
      (op_state kLinkPending s)) as (_ & Hfa & _).
    { rewrite Hmo. apply list_lookup_insert_eq. by eapply lookup_lt_Some. }
    rewrite Hfa, Hma, decide_True in Hact by done. done.
  - destruct (marked_frame j s e) as (Hmo & Hma & _). cbn in Hact. rewrite Hma in Hact.
    injection Hact as <-. destruct (Hf j s Hfj Hs). split; [done|].
    exists s, (op_admitted (op_state kLinkPending s)). split_and!; try done.
    rewrite ops_set_slot, Hmo, list_insert_insert_eq. apply list_lookup_insert_eq.
    by eapply lookup_lt_Some.
Qed.

(** ** The lease *)

(** The effect of [s_finalize] on the token. *)
Lemma finalize_token clock i c response e s :
  m_operations e !! i = Some s -> response_typed (o_kind s) response ->
  l_token (m_lease (s_finalize clock i c response e)) = 0 \/
  m_lease (s_finalize clock i c response e) = m_lease e \/
  o_kind s = kAcquireLease /\ c_status c = WL_RPC_SUCCESS /\ c_rejection c = 0 /\
    exists w, response = Some (AcquireResponse w) /\ x_valid (acquire_extract w) = true /\
      l_token (m_lease (s_finalize clock i c response e)) = x_granted_token (acquire_extract w).
Proof.
  intros Hs Ht. rewrite (finalize_lease _ _ _ _ _ _ Hs). destruct (m_running e); [|by left]. cbn [negb].
  destruct (o_kind s) eqn:Hk; try (by right; left).
  - destruct decide as [Hok|]; [|by left]. apply finalized_ok in Hok as (Hc & Hv & Hrej).
    destruct (acquire_valid _ _ Ht Hv) as (w & -> & _). right. right. split_and!; try done. by exists w.
  - destruct decide; by left.
Qed.

(** An unanswered operation is never a grant. *)
Lemma finalize_token_none clock i c e s :
  m_operations e !! i = Some s ->
  l_token (m_lease (s_finalize clock i c None e)) = 0 \/
  m_lease (s_finalize clock i c None e) = m_lease e.
Proof.
  intros Hs. destruct (finalize_token clock i c None e s Hs I) as [?|[?|(_ & _ & _ & w & ? & _)]]; auto. done.
Qed.

Lemma expire_slot_token clock now e i :
  l_token (m_lease (expire_slot clock now e i)) = 0 \/ m_lease (expire_slot clock now e i) = m_lease e.
Proof.
  unfold expire_slot. destruct (m_operations e !! i) as [s|] eqn:Hs; [|by right].
  destruct (queue_expired now _); [|by right]. by eapply finalize_token_none.
Qed.

Lemma submit_token upgrading clock kind timeout request internal e :
  l_token (m_lease (snd (s_submit upgrading clock kind timeout request internal e))) = l_token (m_lease e).
Proof.
  destruct (submit_cases upgrading clock kind timeout request internal e)
    as [(st & -> & _)|(_ & _ & i & e' & _ & -> & _ & _ & _ & _ & Hl & _)]; [done|].
  cbn [snd]. rewrite Hl. by destruct kind.
Qed.

Lemma schedule_token submit_upgrading submit_clock now e :
  l_token (m_lease (snd (s_scheduleRenewal submit_upgrading submit_clock now e))) = l_token (m_lease e).
Proof.
  destruct (schedule_cases submit_upgrading submit_clock now e) as [->|(_ & _ & _ & ->)]; [done|].
  apply submit_token.
Qed.

Lemma startNext_token start_rpc clock now e :
  l_token (m_lease (snd (s_startNext start_rpc clock now e))) = 0 \/
  l_token (m_lease (snd (s_startNext start_rpc clock now e))) = l_token (m_lease e).
Proof.
  assert (forall c i s e1, m_operations e1 !! i = Some s -> l_token (m_lease e1) = l_token (m_lease e) ->
    l_token (m_lease (s_finalize clock i c None e1)) = 0 \/
    l_token (m_lease (s_finalize clock i c None e1)) = l_token (m_lease e)) as Hfin.
  { intros c i s e1 Hs <-. destruct (finalize_token_none clock i c e1 s Hs) as [|H]; [by left|].
    right. by rewrite H. }
  destruct (startNext_cases start_rpc clock now e) as [j ?|? ?|j t Ha Hf Ht Hz|j t Ha Hf Ht Hz Hr
    |j t r Ha Hf Ht Hz Hr Hb|j t r Ha Hf Ht Hz Hr H1 H2 H3]; cbn [snd]; try (by right);
    pose proof (lookup_lt_Some _ _ _ Ht) as Hj;
    destruct (marked_frame j t e) as (Hmo & _ & _ & _ & _ & Hmt);
    destruct (unmarked_frame j t e) as (Huo & _ & _ & _ & _ & Hut).
  - eapply (Hfin _ _ (op_state kLinkPending t)); [|done]. rewrite Hmo. by apply list_lookup_insert_eq.
  - right. exact Hmt.
  - right. exact Hut.
  - eapply (Hfin _ _ (op_state kQueued t)); [|done]. rewrite Huo. by apply list_lookup_insert_eq.
Qed.

Lemma expire_queue_token clock now e :
  l_token (m_lease (expire_queue clock now e)) = 0 \/ m_lease (expire_queue clock now e) = m_lease e.
Proof.
  apply (expire_queue_ind (fun e' => l_token (m_lease e') = 0 \/ m_lease e' = m_lease e)); [by right|].
  intros e' i H _. destruct (expire_slot_token clock now e' i) as [|Heq]; [by left|].
  rewrite Heq. done.
Qed.

(** The pass, up to the token. *)
Lemma progress_token start_rpc upgrading submit_upgrading clock submit_clock now e :
  let e' := snd (s_progress start_rpc upgrading submit_upgrading clock submit_clock now e) in
  l_token (m_lease e') = 0 \/
  upgrading = false /\ l_token (m_lease e') = l_token (m_lease e) /\
    m_lease (expire_lease now (expire_queue clock now e)) = m_lease e.
Proof.
  cbv zeta. rewrite progress_unfold.
  set (e2 := progressed upgrading submit_upgrading clock submit_clock now e).
  destruct (startNext_token start_rpc clock now e2) as [| ->]; [by left|]. subst e2. unfold progressed.
  cbv zeta. set (e1 := expire_lease now _). destruct upgrading; [by left|]. rewrite schedule_token.
  destruct (expire_queue_token clock now e) as [Hz|Hq].
  - left. unfold e1, expire_lease. by destruct (_ && _).
  - unfold e1, expire_lease. rewrite Hq. destruct (_ && _); [by left|]. right. by rewrite Hq.
Qed.

(** [e'] is the state after a device granted [token]. *)
Definition granted (token : Z) (e e' : FciWirelinkEndpoint) : Prop :=
  exists clock i s c w,
    m_active_operation e = Some i /\ m_operations e !! i = Some s /\ o_kind s = kAcquireLease /\
    c_status c = WL_RPC_SUCCESS /\ c_rejection c = 0 /\ x_valid (acquire_extract w) = true /\
    x_granted_token (acquire_extract w) = token /\ l_token (m_lease e') = token /\
    e' = s_finalize clock i c (Some (AcquireResponse w)) e.

Lemma step_token e e' : ep_step e e' ->
  l_token (m_lease e') = 0 \/ l_token (m_lease e') = l_token (m_lease e) \/
  granted (l_token (m_lease e')) e e'.
Proof.
  intros Hstep. destruct Hstep.
  - right. left. apply submit_token.
  - destruct (progress_token start_rpc upgrading submit_upgrading clock submit_clock now e)
      as [|(_ & -> & _)]; auto.
  - destruct (finalize_token clock i c response e s) as [|[Heq|(Hk & Hc & Hrej & w & -> & Hv & Ht)]];
      [done|done|by left|right; left; by rewrite Heq|].
    right. right. exists clock, i, s, c, w. by rewrite Ht.
  - right. left. by destruct (take_cases accepts value id e) as [->|(i & s & _ & _ & _ & _ & ->)].
  - by right; left.
  - by left.
Qed.

(** The steps during which the endpoint keeps the token. *)
Definition keeping (token : Z) (e e' : FciWirelinkEndpoint) : Prop :=
  ep_step e e' /\ l_token (m_lease e') = token.

(** C2: where a command's token comes from: a successful, unrejected answer to an
    acquisition in flight granted it, and since that moment the endpoint has
    kept it without interruption; it is not zero, the endpoint runs and no
    upgrade is active. *)
Theorem command_token_granted upgrading e token :
  reachable e -> s_commandToken upgrading e = (kOk, token) ->
  token <> 0 /\ upgrading = false /\ m_running e = true /\
  exists e1 e2, reachable e1 /\ granted token e1 e2 /\ steps (keeping token) e2 e.
Proof.
  intros Hr Hc.
  assert (token = l_token (m_lease e) /\ token <> 0 /\ upgrading = false /\ m_running e = true)
    as (-> & Hnz & ? & ?).
  { revert Hc. unfold s_commandToken. destruct upgrading; [done|]. destruct (m_running e); [|done].
    cbn [negb]. unfold holds_lease. destruct (Z.eqb_spec (l_token (m_lease e)) 0).
    - by destruct (l_state (m_lease e)).
    - destruct (l_state (m_lease e)); try done; by intros [= <-]. }
  split_and!; try done. clear Hc.
  set (I e := reachable e /\ (l_token (m_lease e) = 0 \/ exists e1 e2, reachable e1 /\
    granted (l_token (m_lease e)) e1 e2 /\ steps (keeping (l_token (m_lease e))) e2 e)).
  assert (I e) as [_ [?|?]]; [|done..].
  apply (steps_invariant ep_step I) with endpoint0; [|done|by split; [apply steps_refl|left]].
  intros a b [Hra Ha] Hstep. split.
  { eapply steps_trans; [exact Hra|]. eapply steps_cons; [exact Hstep|apply steps_refl]. }
  destruct (step_token a b Hstep) as [?|[Heq|Hg]]; [by left| |].
  - destruct Ha as [?|(e1 & e2 & Hr1 & Hg & Hk)]; [left; congruence|]. right. exists e1, e2.
    rewrite Heq. split_and!; try done. eapply steps_trans; [exact Hk|].
    eapply steps_cons; [split; [exact Hstep|exact Heq]|apply steps_refl].
  - right. exists a, b. split_and!; try done. apply steps_refl.
Qed.

Lemma finalize_none_status c s : o_status (finalized c None s) <> kOk.
Proof. intros (_ & Hv & _)%finalized_ok. done. Qed.

Lemma finalize_none_expire clock i c e s :
  m_operations e !! i = Some s ->
  m_lease_expire_at_ms (s_finalize clock i c None e) = m_lease_expire_at_ms e.
Proof.
  intros Hs. unfold s_finalize. rewrite Hs. cbv zeta. change (final_slot _ _ _ s) with (finalized c None s).
  match goal with |- context [set_slot i (finalized c None s) ?e1] => remember e1 as ec eqn:Hec end.
  assert (m_lease_expire_at_ms ec = m_lease_expire_at_ms e) as Hx.
  { subst ec. destruct (o_kind s); try done.
    destruct (x_device_info _); [|done]. by destruct decide. }
  match goal with |- context [final_lease clock _ ?x _] => set (xx := x) end.
  set (e2 := final_lease _ _ _ _).
  transitivity (m_lease_expire_at_ms e2);
    [by destruct (decide (m_active_operation e2 = Some i)), (o_internal s)|].
  rewrite <- Hx. subst e2. unfold final_lease. cbn [m_running set_slot with_ops].
  destruct (negb (m_running ec)); [done|]. destruct (o_kind (finalized c None s)); try done.
  - rewrite decide_False by apply finalize_none_status. done.
  - rewrite decide_False by apply finalize_none_status. done.
Qed.

Lemma expire_queue_expire clock now e :
  m_lease_expire_at_ms (expire_queue clock now e) = m_lease_expire_at_ms e.
Proof.
  apply (expire_queue_ind (fun e' => m_lease_expire_at_ms e' = m_lease_expire_at_ms e)); [done|].
  intros e' i <- _. unfold expire_slot. destruct (m_operations e' !! i) as [s|] eqn:Hs; [|done].
  destruct (queue_expired now _); [|done]. by eapply finalize_none_expire.
Qed.

Lemma until_elapsed target late : 0 <= late < 2 ^ 31 -> s_until (u32 (target + late)) target = 0.
Proof.
  intros Hl. unfold s_until. replace (target - u32 (target + late)) with (- (u32 (target + late) - target)) by lia.
  destruct (Z.leb_spec (swrap 32 (- (u32 (target + late) - target))) 0) as [|Hlt]; [done|exfalso].
  revert Hlt. apply Z.le_ngt.
  replace (- (u32 (target + late) - target)) with (target - u32 (target + late)) by lia.
  assert (swrap 32 (target - u32 (target + late)) = - late) as ->; [|lia].
  rewrite <- (swrap_id 32 (- late)) by (unfold in_s; lia). unfold swrap, wrap.
  assert ((target - (target + late) mod 2 ^ 32) mod 2 ^ 32 = (- late) mod 2 ^ 32) as ->; [|done].
  rewrite Zminus_mod_idemp_r. f_equal. lia.
Qed.

Lemma no_token_no_command e up : l_token (m_lease e) = 0 -> fst (s_commandToken up e) <> kOk.
Proof.
  intros Hz. unfold s_commandToken. destruct up; [done|]. destruct (m_running e); [|done].
  cbn [negb]. unfold holds_lease. rewrite Hz. by destruct (l_state (m_lease e)).
Qed.

Lemma expire_lease_due now e :
  l_state (m_lease e) = kRenewQueued \/ l_state (m_lease e) = kRenewing ->
  s_until now (m_lease_expire_at_ms e) = 0 -> l_state (m_lease (expire_lease now e)) = kExpired.
Proof. intros [Hst|Hst] Hdue; unfold expire_lease; by rewrite Hst, Hdue. Qed.

Lemma expire_lease_zero now e :
  l_token (m_lease e) = 0 -> l_token (m_lease (expire_lease now e)) = 0.
Proof. intros Hz. unfold expire_lease. by destruct (_ && _). Qed.

(** A lease that could not be renewed in time is dropped: once the granted
    duration has passed while the renewal is queued or in flight, the owner's
    next pass leaves no token, and commands are refused. *)
Theorem lease_expires start_rpc upgrading submit_upgrading clock submit_clock e late :
  l_state (m_lease e) = kRenewQueued \/ l_state (m_lease e) = kRenewing -> 0 <= late < 2 ^ 31 ->
  let e' := snd (s_progress start_rpc upgrading submit_upgrading clock submit_clock
    (u32 (m_lease_expire_at_ms e + late)) e) in
  l_token (m_lease e') = 0 /\ forall up, fst (s_commandToken up e') <> kOk.
Proof.
  intros Hst Hlate. cbv zeta. pose proof (until_elapsed (m_lease_expire_at_ms e) late Hlate) as Hdue.
  revert Hdue. generalize (u32 (m_lease_expire_at_ms e + late)). intros now Hdue.
  enough (l_token (m_lease (snd (s_progress start_rpc upgrading submit_upgrading clock submit_clock
    now e))) = 0) as Hz by (split; [exact Hz|intros up; by apply no_token_no_command]).
  destruct (progress_token start_rpc upgrading submit_upgrading clock submit_clock now e)
    as [Hz|(_ & Ht & Heq)]; [exact Hz|]. rewrite Ht.
  destruct (expire_queue_token clock now e) as [Hq|Hq].
  - rewrite <- Heq. by apply expire_lease_zero.
  - exfalso. assert (l_state (m_lease (expire_lease now (expire_queue clock now e))) = kExpired) as Hx.
    { apply expire_lease_due; [by rewrite Hq|by rewrite expire_queue_expire]. }
    rewrite Heq in Hx. destruct Hst; congruence.
Qed.

Lemma submit_accepts clock kind timeout request internal e i :
  m_running e = true -> s_allocateSlot internal e = Some i ->
  fst (s_submit false clock kind timeout request internal e) = (kOk, m_next_request_id e).
Proof. intros Hr Ha. unfold s_submit. cbn [andb]. rewrite Hr, Ha. by destruct kind. Qed.

(** A due renewal is queued in the reserved slot. *)
Lemma schedule_due submit_clock now e :
  ep_inv e -> m_running e = true -> l_state (m_lease e) = kHeld ->
  s_until now (m_lease_renew_at_ms e) = 0 -> m_operations e !! 7%nat = Some slot0 ->
  let timeout := m_lease_requested_timeout_ms e in
  let e1 := snd (s_scheduleRenewal false submit_clock now e) in
  m_operations e1 = <[7%nat := queued_op submit_clock (m_next_request_id e) kAcquireLease timeout
    (renewal_request timeout (l_token (m_lease e))) true]> (m_operations e) /\
  m_active_operation e1 = m_active_operation e /\ m_running e1 = true /\
  m_lease e1 = lease_queued kRenewQueued (m_lease e).
Proof.
  intros Hinv Hrun Hst Hdue H7. cbv zeta.
  assert (l_token (m_lease e) <> 0) as Hnz.
  { pose proof (inv_lease e Hinv) as Hlok. unfold lease_ok in Hlok. rewrite Hst in Hlok. tauto. }
  assert (s_allocateSlot true e = Some 7%nat) as Hal.
  { unfold s_allocateSlot. rewrite (inv_len e Hinv). change (s_kOperationCapacity - 1)%nat with 7%nat.
    by rewrite H7. }
  assert (snd (s_scheduleRenewal false submit_clock now e) = snd (s_submit false submit_clock kAcquireLease
    (m_lease_requested_timeout_ms e) (renewal_request (m_lease_requested_timeout_ms e)
      (l_token (m_lease e))) true e)) as ->.
  { unfold s_scheduleRenewal. cbv zeta. rewrite bool_decide_true by done. rewrite Hdue.
    rewrite (proj2 (Z.eqb_neq _ 0) Hnz). cbn [negb orb Z.eqb].
    by destruct (s_submit _ _ _ _ _ _ e) as [[? ?] ?]. }
  set (timeout := m_lease_requested_timeout_ms e). set (request := renewal_request _ _).
  destruct (submit_cases false submit_clock kAcquireLease timeout request true e)
    as [(st & Heq & Hne)|(_ & _ & i & e' & Hali & -> & Ho & Ha & Hr & _ & Hl & _)].
  - pose proof (submit_accepts submit_clock kAcquireLease timeout request true e 7 Hrun Hal) as Hacc.
    rewrite Heq in Hacc. cbn in Hacc. congruence.
  - cbn [snd]. assert (i = 7%nat) as -> by congruence. rewrite Ho, Ha, Hr, Hl. done.
Qed.

(** A held lease is renewed without the caller: when half of the granted
    time has passed, the owner's pass sends an acquisition that carries the
    current token, from the slot that public operations cannot take, and
    commands keep their token meanwhile. *)
Theorem lease_renewal start_rpc clock submit_clock now e :
  reachable e -> m_running e = true -> l_state (m_lease e) = kHeld ->
  s_until now (m_lease_renew_at_ms e) = 0 ->
  m_active_operation e = None -> (forall i s, m_operations e !! i = Some s -> is_queued s = false) ->
  m_operations e !! 7%nat = Some slot0 -> ids_left e ->
  s_queueRemaining now submit_clock (m_lease_requested_timeout_ms e) <> 0 ->
  (forall d w t, start_rpc d w t = WL_OK) ->
  let e' := snd (s_progress start_rpc false false clock submit_clock now e) in
  m_active_operation e' = Some 7%nat /\ l_state (m_lease e') = kRenewing /\
  s_commandToken false e' = (kOk, l_token (m_lease e)) /\
  exists s, m_operations e' !! 7%nat = Some s /\ o_kind s = kAcquireLease /\ o_internal s = true /\
    r_lease_token (o_request s) = l_token (m_lease e) /\
    r_requested_lease_timeout_ms (o_request s) = m_lease_requested_timeout_ms e.
Proof.
  intros Hr Hrun Hst Hdue Hact Hidle H7 Hleft Hrem Hok e'.
  pose proof (reachable_inv e Hr) as Hinv. pose proof (inv_lease e Hinv) as Hlok. unfold lease_ok in Hlok.
  rewrite Hst in Hlok. destruct Hlok as (Hnz & _).
  assert (expire_queue clock now e = e) as Hq.
  { apply expire_queue_ind; [done|]. intros a i -> _. unfold expire_slot.
    destruct (m_operations e !! i) as [s|] eqn:Hs; [|done]. change (default slot0 (Some s)) with s.
    unfold queue_expired. by rewrite (Hidle i s Hs). }
  assert (expire_lease now e = e) as Hl by (unfold expire_lease; by rewrite Hst).
  subst e'. rewrite progress_unfold. unfold progressed. cbv zeta. rewrite Hq, Hl.
  destruct (schedule_due submit_clock now e Hinv Hrun Hst Hdue H7) as (Ho1 & Ha1 & Hr1 & Hl1).
  revert Ho1 Ha1 Hr1 Hl1. set (q := queued_op _ _ _ _ _ _). generalize (snd (s_scheduleRenewal false submit_clock now e)).
  intros e1 Ho1 Ha1 Hr1 Hl1. rewrite Hact in Ha1.
  assert (m_operations e1 !! 7%nat = Some q) as Hs1.
  { rewrite Ho1. apply list_lookup_insert_eq. by eapply lookup_lt_Some. }
  assert (s_findQueuedSlot e1 = Some 7%nat) as Hf.
  { destruct (s_findQueuedSlot e1) as [j|] eqn:Hf.
    - apply findQueuedSlot_some in Hf as (s & Hs & Hqs & _). rewrite Ho1 in Hs.
      apply list_lookup_insert_Some in Hs as [(-> & _)|[_ Hs]]; [done|].
      by rewrite (Hidle j s Hs) in Hqs.
    - apply oldest_queued_none in Hf as [_ Hf]. specialize (Hf 7%nat q Hs1 eq_refl). cbn in Hf.
      unfold ids_left in Hleft. lia. }
  pose proof (startNext_cases start_rpc clock now e1) as Hc.
  assert (s_queueRemaining now (o_submitted_at_ms q) (o_timeout_ms q) <> 0) as Hrem1 by done.
  assert (forall t, started start_rpc q t = WL_OK) as Hok1 by (intros; apply Hok).
  inversion Hc as [| |j s ? Hfj Hsj Hz Hres|j s ? Hfj Hsj Hz Hr' Hres|j s r ? Hfj Hsj Hz Hr' [Hb|Hb] Hres
    |j s r ? Hfj Hsj Hz Hr' ? ? ? Hres]; try congruence;
    assert (j = 7%nat) as -> by congruence; assert (s = q) as -> by congruence; try congruence;
    try (by rewrite Hok1 in Hr'; congruence).
  cbn [snd]. destruct (marked_frame 7 q e1) as (Hmo & Hma & _ & Hmr & _ & Hmt).
  assert (m_lease (marked 7 q e1) = lease_state kRenewing (m_lease e1)) as Hml by reflexivity.
  split_and!; [exact Hma|cbn [m_lease set_slot with_ops]; by rewrite Hml| |].
  - unfold s_commandToken. cbn [m_running m_lease set_slot with_ops]. rewrite Hmr, Hr1, Hml, Hl1.
    unfold holds_lease. cbn. by rewrite (proj2 (Z.eqb_neq _ 0) Hnz).
  - exists (op_admitted (op_state kLinkPending q)). split_and!; try done.
    rewrite ops_set_slot, Hmo.
    rewrite list_insert_insert_eq. apply list_lookup_insert_eq. by eapply lookup_lt_Some.
Qed.

(** ** One operation at a time *)

(** C29: in every reachable state there are eight slots, at most one RPC is in
    flight and it is the recorded active one, two operations never share a
    request id, the last slot only serves lease renewals, and an operation
    that is neither queued nor in flight is a caller's finished one. *)
Theorem endpoint_invariant e :
  reachable e ->
  length (m_operations e) = 8%nat /\
  (forall i s, m_operations e !! i = Some s ->
     (o_used s = true /\ o_state s = kLinkPending <-> m_active_operation e = Some i) /\
     (o_used s = true -> i = 7%nat -> o_internal s = true) /\
     (o_used s = true -> o_state s = kQueued \/ o_state s = kLinkPending \/
        s_terminal (o_state s) = true /\ o_internal s = false)) /\
  (forall i j s t, m_operations e !! i = Some s -> m_operations e !! j = Some t ->
     o_used s = true -> o_used t = true -> o_request_id s = o_request_id t -> i = j) /\
  (l_state (m_lease e) = kHeld -> l_token (m_lease e) <> 0 /\
     l_granted_timeout_ms (m_lease e) <> 0 /\ l_granted_timeout_ms (m_lease e) < 2 ^ 31).
Proof.
  intros Hr. pose proof (reachable_inv e Hr) as Hinv. split; [apply (inv_len e Hinv)|].
  split; [|split; [intros ????; by apply (inv_ids e Hinv)|]].
  - intros i s Hs. pose proof (inv_slot e Hinv i s Hs) as Hok. unfold slot_ok in Hok.
    split; [split|split].
    + intros [Hu Hst]. rewrite Hu in Hok. destruct Hok as (_ & [?|[[_ ?]|[Ht _]]] & _);
        [congruence|done|by rewrite Hst in Ht].
    + intros Ha. destruct (inv_active e Hinv i Ha) as (s' & Hs' & ? & ?). by simplify_eq.
    + intros Hu. rewrite Hu in Hok. apply Hok.
    + intros Hu. rewrite Hu in Hok. destruct Hok as (_ & [?|[[? _]|?]] & _); auto.
  - intros Hh. pose proof (inv_lease e Hinv) as Hl. unfold lease_ok in Hl. by rewrite Hh in Hl.
Qed.

(** ** Results *)

(** A caller's operation that the link completes keeps its request id, gets
    the state and status of the completion, is reported once by
    [takeOperation], and its id then stands for nothing; the next operation
    can start. *)
Theorem result_taken_once clock e i s c response :
  reachable e -> m_active_operation e = Some i -> m_operations e !! i = Some s ->
  response_typed (o_kind s) response -> o_internal s = false ->
  let e' := s_finalize clock i c response e in
  let status := o_status (finalized c response s) in
  let r := {| res_request_id := o_request_id s; res_state := completion_state (c_status c);
              res_status := status; res_domain_status := c_rejection c;
              res_link_status := c_transport_error c |} in
  m_active_operation e' = None /\
  inspectOperation (o_request_id s) e' = (status, Some r) /\
  fst (takeOperation (o_request_id s) e') = (status, Some r, None) /\
  inspectOperation (o_request_id s) (snd (takeOperation (o_request_id s) e')) = (kNoData, None) /\
  (status = kOk <-> c_status c = WL_RPC_SUCCESS /\ c_rejection c = 0 /\
     x_valid (extract (o_request s) response) = true).
Proof.
  intros Hr Ha Hs Ht Hint. cbv zeta. pose proof (reachable_inv e Hr) as Hinv.
  destruct (inv_active e Hinv i Ha) as (s' & Hs' & Hu & _). assert (s' = s) as -> by congruence.
  destruct (finalize_frame clock i c response e s Hs) as (Ho & Ha' & _). rewrite Hint in Ho.
  assert (ep_inv (s_finalize clock i c response e)) as Hinv' by (by eapply finalize_inv).
  assert (m_operations (s_finalize clock i c response e) !! i = Some (finalized c response s)) as Hlk.
  { rewrite Ho. apply list_lookup_insert_eq. by eapply lookup_lt_Some. }
  revert Ha' Hinv' Hlk. generalize (s_finalize clock i c response e). intros e' Ha' Hinv' Hlk.
  destruct (finalized_fields c response s) as (Fu & Fid & Fterm & _).
  assert (s_findSlot (o_request_id s) e' = Some i) as Hf.
  { apply findSlot_iff; [done|]. exists (finalized c response s). by rewrite Fu, Fid. }
  split; [by rewrite Ha', decide_True|]. unfold inspectOperation at 1. rewrite Hf, Hlk. split; [done|].
  unfold takeOperation, take_slot. rewrite Hf, Hlk. change (default slot0 (Some ?x)) with x.
  rewrite Fterm. cbn [negb fst snd]. split; [by destruct (decide (o_status (finalized c response s) = kOk))|]. split.
  - unfold inspectOperation. destruct (s_findSlot _ (set_slot i slot0 e')) as [j|] eqn:Hj; [exfalso|done].
    apply findSlot_some in Hj as (t & Htj & Hut & Hid). rewrite ops_set_slot in Htj.
    apply list_lookup_insert_Some in Htj as [(_ & <- & _)|[Hne Htj]]; [done|]. apply Hne.
    eapply (inv_ids e' Hinv' i j); [exact Hlk|exact Htj|by rewrite Fu|done|]. by rewrite Fid.
  - split; [intros Hok; by apply finalized_ok in Hok as (? & ? & ?)|].
    intros (Hc & Hrej & Hv). unfold finalized. cbn [final_slot o_status].
    rewrite Hc. rewrite decide_True by done. by rewrite Hv, Hrej.
Qed.

(** When the owner stops, every caller's queued operation becomes a
    cancelled result under its id, renewals vanish, other slots keep what they
    have, the lease and its token are gone, and until the next start nothing
    is accepted and nothing is sent. *)
Theorem stop_cancels e :
  reachable e ->
  let e' := s_stopOnOwner e in
  (forall i s, m_operations e !! i = Some s -> is_queued s = true -> o_internal s = false ->
     exists s', m_operations e' !! i = Some s' /\ o_request_id s' = o_request_id s /\
       o_state s' = kOpCancelled /\ o_status s' = kCancelled) /\
  (forall i s, m_operations e !! i = Some s -> is_queued s = false -> m_operations e' !! i = Some s) /\
  m_lease e' = lease_cancelled /\
  (forall up, fst (s_commandToken up e') <> kOk) /\
  (forall up clock kind timeout request internal,
     fst (fst (s_submit up clock kind timeout request internal e')) <> kOk) /\
  (forall start_rpc up sup clock sclock now,
     fst (s_progress start_rpc up sup clock sclock now e') = false).
Proof.
  intros Hr. cbv zeta. pose proof (reachable_inv e Hr) as Hinv.
  assert (forall i s, m_operations e !! i = Some s ->
    m_operations (s_stopOnOwner e) !! i = Some (stop_slot s)) as Hlk.
  { intros i s Hs. cbn. by rewrite list_lookup_fmap, Hs. }
  assert (forall i s, m_operations (s_stopOnOwner e) !! i = Some s -> is_queued s = false) as Hnq.
  { intros i s Hs. cbn in Hs. rewrite list_lookup_fmap in Hs.
    destruct (m_operations e !! i) as [t|]; [|done]. injection Hs as <-. cbn. rewrite stop_slot_cases.
    destruct (is_queued t) eqn:Hq; [|done]. destruct (o_internal t); [done|].
    unfold is_queued. by rewrite andb_false_r. }
  split_and!.
  - intros i s Hs Hq Hint. exists (stop_slot s). rewrite (Hlk i s Hs), stop_slot_cases, Hq, Hint. done.
  - intros i s Hs Hq. by rewrite (Hlk i s Hs), stop_slot_cases, Hq.
  - done.
  - intros up. by apply no_token_no_command.
  - intros. unfold s_submit. destruct (up && _); [done|]. done.
  - intros. rewrite progress_unfold. pose proof (stop_inv e Hinv) as Hinv'.
    assert (expire_queue clock now (s_stopOnOwner e) = s_stopOnOwner e) as Hq.
    { apply expire_queue_ind; [done|]. intros a i -> _. unfold expire_slot.
      destruct (m_operations (s_stopOnOwner e) !! i) as [s|] eqn:Hs; [|done].
      change (default slot0 (Some s)) with s. unfold queue_expired. by rewrite (Hnq i s Hs). }
    unfold progressed. cbv zeta. rewrite Hq. change (expire_lease now (s_stopOnOwner e)) with (s_stopOnOwner e).
    assert (forall a, (forall i s, m_operations a !! i = Some s -> is_queued s = false) ->
      fst (s_startNext start_rpc clock now a) = false) as Hidle.
    { intros a Ha. destruct (startNext_cases start_rpc clock now a) as [j ?|? ?|j t ? Hf|j t ? Hf|j t r ? Hf
        |j t r ? Hf]; try done; apply findQueuedSlot_some in Hf as (u & Hu & Hqu & _);
        by rewrite (Ha j u Hu) in Hqu. }
    destruct up; [by apply Hidle|].
    destruct (schedule_cases sup sclock now (s_stopOnOwner e)) as [->|(Hh & _)]; [by apply Hidle|done].
Qed.

(** ** The deadline hint *)

(** The moments at which the owner has something to do. *)
Inductive due (now : Z) (e : FciWirelinkEndpoint) : Z -> Prop :=
| due_queued i s : m_operations e !! i = Some s -> is_queued s = true ->
    due now e (s_queueRemaining now (o_submitted_at_ms s) (o_timeout_ms s))
| due_renewal : l_state (m_lease e) = kHeld -> due now e (s_until now (m_lease_renew_at_ms e))
| due_expiry : l_state (m_lease e) = kRenewQueued \/ l_state (m_lease e) = kRenewing ->
    due now e (s_until now (m_lease_expire_at_ms e)).

Lemma queue_hint now l nearest :
  let f := fun nearest s =>
    if is_queued s then Z.min nearest (s_queueRemaining now (o_submitted_at_ms s) (o_timeout_ms s))
    else nearest in
  foldl f nearest l <= nearest /\
  (forall i s, l !! i = Some s -> is_queued s = true ->
     foldl f nearest l <= s_queueRemaining now (o_submitted_at_ms s) (o_timeout_ms s)) /\
  (foldl f nearest l = nearest \/ exists i s, l !! i = Some s /\ is_queued s = true /\
     foldl f nearest l = s_queueRemaining now (o_submitted_at_ms s) (o_timeout_ms s)).
Proof.
  intros f. revert nearest. induction l as [|s l IH]; intros nearest; cbn [foldl].
  { split; [lia|]. split; [done|by left]. }
  destruct (IH (f nearest s)) as (Hle & Hall & Hex).
  assert (f nearest s <= nearest) as Hn by (unfold f; destruct (is_queued s); lia).
  split; [lia|]. split.
  - intros [|i] t Ht Hq; [|by eapply Hall]. injection Ht as <-. etransitivity; [exact Hle|].
    unfold f. rewrite Hq. lia.
  - destruct Hex as [Heq|(i & t & Ht & Hq & Heq)]; [|right; by exists (S i), t].
    rewrite Heq. unfold f. destruct (is_queued s) eqn:Hq; [|by left].
    destruct (Z.min_spec nearest (s_queueRemaining now (o_submitted_at_ms s) (o_timeout_ms s)))
      as [[_ ->]|[_ ->]]; [by left|]. right. by exists 0%nat, s.
Qed.

(** The deadline hint is the earliest due moment: the owner is never told to
    sleep past the deadline of a queued operation, the renewal of a held lease
    or the expiry of one being renewed, and is told one of those whenever the
    hint is not "none". *)
Theorem deadline_hint no_deadline now e :
  (forall t, due now e t -> s_applicationDeadline no_deadline now e <= t) /\
  (s_applicationDeadline no_deadline now e = no_deadline \/
   due now e (s_applicationDeadline no_deadline now e)).
Proof.
  unfold s_applicationDeadline. cbv zeta.
  destruct (queue_hint now (m_operations e) no_deadline) as (Hle & Hall & Hex).
  revert Hle Hall Hex. set (q := foldl _ _ _). intros Hle Hall Hex.
  assert (q = no_deadline \/ due now e q) as Hq.
  { destruct Hex as [|(i & s & Hs & Hqs & Heq)]; [by left|]. right. rewrite Heq. by eapply due_queued. }
  assert (forall t, due now e (Z.min q t) \/ Z.min q t <> t -> Z.min q t = no_deadline \/ due now e (Z.min q t)) as Hmin.
  { intros t [|Ht]; [by right|]. destruct (Z.min_spec q t) as [[_ Heq]|[_ Heq]]; rewrite Heq in *; done. }
  split.
  - intros t Hd. destruct Hd as [i s Hs Hqs|Hh|[Hh|Hh]]; rewrite ?Hh; try lia.
    specialize (Hall i s Hs Hqs). destruct (l_state (m_lease e)); lia.
  - destruct (l_state (m_lease e)) eqn:Hst; try exact Hq; apply Hmin.
    + destruct (decide (Z.min q (s_until now (m_lease_renew_at_ms e)) = s_until now (m_lease_renew_at_ms e)))
        as [->|]; [left; by apply due_renewal|by right].
    + destruct (decide (Z.min q (s_until now (m_lease_expire_at_ms e)) = s_until now (m_lease_expire_at_ms e)))
        as [->|]; [left; apply due_expiry; auto|by right].
    + destruct (decide (Z.min q (s_until now (m_lease_expire_at_ms e)) = s_until now (m_lease_expire_at_ms e)))
        as [->|]; [left; apply due_expiry; auto|by right].
Qed.

(** ** Runs on which the hypotheses hold *)

Lemma reach_step e e' : reachable e -> ep_step e e' -> reachable e'.
Proof. intros Hr Hs. eapply steps_trans; [exact Hr|]. eapply steps_cons; [exact Hs|apply steps_refl]. Qed.

Definition accept_rpc (d : wlc_desc) (w : wstruct) (remaining : Z) : wl_result := WL_OK.

(** A session: started; a lease requested at 1000, sent, granted for 400 ms with
    token 77 at 1010; its renewal sent at 1210. *)
Definition run_started := with_running true endpoint0.
Definition run_acquiring :=
  snd (s_submit false 1000 kAcquireLease 500 (lease_request 400 0) false run_started).
Definition run_sent := snd (s_progress accept_rpc false false 1001 1001 1001 run_acquiring).
Definition grant : Response := AcquireResponse [SOpt true (VInt 77); SOpt true (VInt 400)].
Definition run_held := s_finalize 1010 0 (completed_with WL_RPC_SUCCESS) (Some grant) run_sent.
Definition run_renewing := snd (s_progress accept_rpc false false 1210 1210 1210 run_held).
(** ... and one with a homing motion in the queue and then in flight. *)
Definition run_homing := snd (s_submit false 1000 kHome 100 request0 false run_started).
Definition run_home_sent := snd (s_progress accept_rpc false false 1001 1001 1001 run_homing).

Lemma reach_started : reachable run_started.
Proof. eapply reach_step; [apply steps_refl|]. apply step_running. Qed.
Lemma reach_acquiring : reachable run_acquiring.
Proof. eapply reach_step; [apply reach_started|]. apply step_submit. reflexivity. Qed.
Lemma reach_sent : reachable run_sent.
Proof. eapply reach_step; [apply reach_acquiring|]. apply step_progress. reflexivity. Qed.
Lemma reach_held : reachable run_held.
Proof.
  eapply reach_step; [apply reach_sent|].
  eapply (step_complete 1010 0); [vm_compute; reflexivity|vm_compute; reflexivity|reflexivity].
Qed.
Lemma reach_homing : reachable run_homing.
Proof. eapply reach_step; [apply reach_started|]. apply step_submit. reflexivity. Qed.
Lemma reach_home_sent : reachable run_home_sent.
Proof. eapply reach_step; [apply reach_homing|]. apply step_progress. reflexivity. Qed.

Lemma endpoint_invariant_witness :
  reachable run_held /\ length (m_operations run_held) = 8%nat.
Proof. split; [exact reach_held|]. exact (proj1 (endpoint_invariant run_held reach_held)). Defined.

Lemma queue_deadline_witness :
  exists s s', m_operations run_homing !! 0%nat = Some s /\ is_queued s = true /\
    m_operations (snd (s_progress accept_rpc false false 0 0 (u32 (o_submitted_at_ms s + 150)) run_homing))
      !! 0%nat = Some s' /\ o_state s' = kTimedOut.
Proof.
  destruct (queue_deadline accept_rpc false false 0 0 run_homing 0 (queued_op 1000 1 kHome 100 request0 false)
    150 reach_homing) as (s' & Hs' & _ & Hst & _);
    [vm_compute; reflexivity|reflexivity|reflexivity|cbn; lia|lia|].
  exists (queued_op 1000 1 kHome 100 request0 false), s'.
  split; [vm_compute; reflexivity|]. split; [reflexivity|]. split; [exact Hs'|exact Hst].
Defined.

Lemma queue_order_witness :
  exists e', s_startNext accept_rpc 1001 1001 run_homing = (true, e') /\ m_active_operation e' = Some 0%nat /\
    m_active_operation run_homing = None.
Proof.
  eexists. split; [vm_compute; reflexivity|]. split; [reflexivity|].
  refine (proj1 (queue_order accept_rpc 1001 1001 run_homing _ 0 reach_homing _ _));
    [vm_compute; reflexivity|reflexivity].
Defined.

Lemma command_token_granted_witness :
  s_commandToken false run_held = (kOk, 77) /\ 77 <> 0 /\ m_running run_held = true.
Proof.
  assert (s_commandToken false run_held = (kOk, 77)) as Ht by (vm_compute; reflexivity).
  destruct (command_token_granted false run_held 77 reach_held Ht) as (Hnz & _ & Hr & _).
  split; [exact Ht|]. split; [exact Hnz|exact Hr].
Defined.

Lemma lease_expires_witness :
  l_state (m_lease run_renewing) = kRenewing /\ l_token (m_lease run_renewing) = 77 /\
  l_token (m_lease (snd (s_progress accept_rpc false false 0 0
    (u32 (m_lease_expire_at_ms run_renewing + 1)) run_renewing))) = 0.
Proof.
  split; [vm_compute; reflexivity|]. split; [vm_compute; reflexivity|].
  refine (proj1 (lease_expires accept_rpc false false 0 0 run_renewing 1 _ _));
    [right; vm_compute; reflexivity|lia].
Defined.

Lemma all_idle e : forallb (fun s => negb (is_queued s)) (m_operations e) = true ->
  forall i s, m_operations e !! i = Some s -> is_queued s = false.
Proof.
  intros H i s Hs. rewrite forallb_forall in H. apply negb_true_iff, H.
  by eapply list_elem_of_In, list_elem_of_lookup_2.
Qed.

Lemma lease_renewal_witness :
  l_state (m_lease run_held) = kHeld /\ l_state (m_lease run_renewing) = kRenewing.
Proof.
  split; [vm_compute; reflexivity|].
  refine (proj1 (proj2 (lease_renewal accept_rpc 1210 1210 1210 run_held reach_held _ _ _ _ _ _ _ _ _)));
    try (vm_compute; reflexivity).
  - apply all_idle. vm_compute. reflexivity.
  - vm_compute. discriminate.
Defined.

Definition home_in_flight : OperationSlot :=
  op_admitted (op_state kLinkPending (queued_op 1000 1 kHome 100 request0 false)).

Lemma result_taken_once_witness :
  let e' := s_finalize 1100 0 (completed_with WL_RPC_SUCCESS) (Some OtherResponse) run_home_sent in
  m_operations run_home_sent !! 0%nat = Some home_in_flight /\ m_active_operation e' = None /\
  o_status (finalized (completed_with WL_RPC_SUCCESS) (Some OtherResponse) home_in_flight) = kOk.
Proof.
  cbv zeta. assert (m_operations run_home_sent !! 0%nat = Some home_in_flight) as Hs
    by (vm_compute; reflexivity).
  split; [exact Hs|]. split; [|vm_compute; reflexivity].
  assert (m_active_operation run_home_sent = Some 0%nat) as Ha by (vm_compute; reflexivity).
  exact (proj1 (result_taken_once 1100 run_home_sent 0 home_in_flight (completed_with WL_RPC_SUCCESS)
    (Some OtherResponse) reach_home_sent Ha Hs eq_refl eq_refl)).
Defined.

Lemma stop_cancels_witness :
  m_lease (s_stopOnOwner run_held) = lease_cancelled.
Proof. exact (proj1 (proj2 (proj2 (stop_cancels run_held reach_held)))). Defined.

Lemma deadline_hint_witness :
  s_applicationDeadline 4294967295 1020 run_homing <= 80.
Proof.
  refine (proj1 (deadline_hint 4294967295 1020 run_homing) 80 _).
  exact (due_queued 1020 run_homing 0 (queued_op 1000 1 kHome 100 request0 false) eq_refl eq_refl).
Defined.
