(* ===== verification/EndpointCalls.v ===== *)
(** * The device endpoint: its public operations and their requests

    Which arguments the public operations of [src/FciWirelinkEndpoint.cpp]
    accept, what an accepted call leaves in the queue, and that what the owner
    later sends for it is a message of the protocol that carries exactly the
    caller's arguments. *)

From Stdlib Require Import String.
From S2P Require Import Prelude WlcWire WlcSchema WlcCodec WlcRoundtrip WlcValue FciMessages FciApi.
From S2P Require Import FciProperties DeviceTypes Endpoint EndpointOps EndpointInv EndpointProps.

(** ** Calls *)

Inductive PublicCall :=
| CallAcquireControlLease (requested timeout : Z)
| CallReleaseControlLease (timeout : Z)
| CallGetDeviceInfo (timeout : Z)
| CallSetDeviceInfo (name : bytes) (timeout : Z)
| CallGetDeviceSettings (timeout : Z)
| CallSetDeviceSettings (s : DeviceSettings) (timeout : Z)
| CallSetArmControlMode (mode timeout : Z)
| CallSetGripperControlMode (mode timeout : Z)
| CallSetArmMode (mode timeout : Z)
| CallHome (timeout : Z)
| CallSetZero (joint timeout : Z)
| CallClearError (joint timeout : Z)
| CallClearFaults (timeout : Z)
| CallEmergencyStop (timeout : Z)
| CallReadMotorRegister (joint register timeout : Z)
| CallWriteMotorRegister (joint register value timeout : Z)
| CallStoreMotorParameters (joint timeout : Z)
| CallSetMotorZero (joint timeout : Z).

Definition run_call (upgrading : bool) (clock : Z) (c : PublicCall)
    : FciWirelinkEndpoint -> FciSubmitResult * FciWirelinkEndpoint :=
  match c with
  | CallAcquireControlLease r t => acquireControlLease upgrading clock r t
  | CallReleaseControlLease t => releaseControlLease upgrading clock t
  | CallGetDeviceInfo t => getDeviceInfo upgrading clock t
  | CallSetDeviceInfo n t => setDeviceInfo upgrading clock n t
  | CallGetDeviceSettings t => getDeviceSettings upgrading clock t
  | CallSetDeviceSettings s t => setDeviceSettings upgrading clock s t
  | CallSetArmControlMode m t => setArmControlMode upgrading clock m t
  | CallSetGripperControlMode m t => setGripperControlMode upgrading clock m t
  | CallSetArmMode m t => setArmMode upgrading clock m t
  | CallHome t => home upgrading clock t
  | CallSetZero j t => setZero upgrading clock j t
  | CallClearError j t => clearError upgrading clock j t
  | CallClearFaults t => clearFaults upgrading clock t
  | CallEmergencyStop t => emergencyStop upgrading clock t
  | CallReadMotorRegister j r t => readMotorRegister upgrading clock j r t
  | CallWriteMotorRegister j r v t => writeMotorRegister upgrading clock j r v t
  | CallStoreMotorParameters j t => storeMotorParameters upgrading clock j t
  | CallSetMotorZero j t => setMotorZero upgrading clock j t
  end.

Definition call_kind (c : PublicCall) : RpcKind :=
  match c with
  | CallAcquireControlLease _ _ => kAcquireLease
  | CallReleaseControlLease _ => kReleaseLease
  | CallGetDeviceInfo _ => kGetDeviceInfo
  | CallSetDeviceInfo _ _ => kSetDeviceInfo
  | CallGetDeviceSettings _ => kGetDeviceSettings
  | CallSetDeviceSettings _ _ => kSetDeviceSettings
  | CallSetArmControlMode _ _ => kSetArmControlMode
  | CallSetGripperControlMode _ _ => kSetGripperControlMode
  | CallSetArmMode _ _ => kSetArmMode
  | CallHome _ => kHome
  | CallSetZero _ _ => kSetZero
  | CallClearError _ _ => kClearError
  | CallClearFaults _ => kClearFaults
  | CallEmergencyStop _ => kEmergencyStop
  | CallReadMotorRegister _ _ _ => kMotorRegisterRead
  | CallWriteMotorRegister _ _ _ _ => kMotorRegisterWrite
  | CallStoreMotorParameters _ _ => kMotorStoreParameters
  | CallSetMotorZero _ _ => kMotorSetZero
  end.

Definition call_timeout (c : PublicCall) : Z :=
  match c with
  | CallAcquireControlLease _ t | CallReleaseControlLease t | CallGetDeviceInfo t
  | CallSetDeviceInfo _ t | CallGetDeviceSettings t | CallSetDeviceSettings _ t
  | CallSetArmControlMode _ t | CallSetGripperControlMode _ t | CallSetArmMode _ t | CallHome t
  | CallSetZero _ t | CallClearError _ t | CallClearFaults t | CallEmergencyStop t
  | CallReadMotorRegister _ _ t | CallWriteMotorRegister _ _ _ t | CallStoreMotorParameters _ t
  | CallSetMotorZero _ t => t
  end.

(** The arguments have their C++ types. *)
Definition call_typed (c : PublicCall) : bool :=
  between_u 32 (call_timeout c) &&
  match c with
  | CallAcquireControlLease r _ => between_u 32 r
  | CallSetDeviceInfo n _ => bytes_okb n
  | CallSetDeviceSettings s _ => settings_shape s
  | CallSetArmControlMode m _ | CallSetGripperControlMode m _ | CallSetArmMode m _ => between_u 8 m
  | CallSetZero j _ | CallClearError j _ | CallStoreMotorParameters j _ | CallSetMotorZero j _ =>
      between_u 8 j
  | CallReadMotorRegister j r _ => between_u 8 j && between_u 8 r
  | CallWriteMotorRegister j r v _ => between_u 8 j && between_u 8 r && between_u 32 v
  | _ => true
  end.

(** What the checks of the public operations establish of a request. *)
Definition request_ok (k : RpcKind) (r : OperationRequest) : bool :=
  match k with
  | kNone => false
  | kGetDeviceInfo | kGetDeviceSettings | kHome | kClearFaults | kEmergencyStop => true
  | kAcquireLease =>
      between 1 s_kMaximumRelativeTimeout (r_requested_lease_timeout_ms r) &&
      between_u 64 (r_lease_token r)
  | kReleaseLease => between_u 64 (r_lease_token r) && negb (r_lease_token r =? 0)
  | kSetDeviceInfo => (length (r_custom_name r) <=? 31)%nat && bytes_okb (r_custom_name r)
  | kSetDeviceSettings =>
      s_validSettings (r_device_settings r) && settings_shape (r_device_settings r)
  | kSetArmControlMode | kSetGripperControlMode => between 1 5 (r_control_mode r)
  | kSetArmMode => between 0 5 (r_arm_mode r)
  | kSetZero | kClearError | kMotorStoreParameters | kMotorSetZero => between 0 7 (r_joint_id r)
  | kMotorRegisterRead => between 0 7 (r_joint_id r) && between_u 8 (r_register_id r)
  | kMotorRegisterWrite =>
      between 0 7 (r_joint_id r) && between_u 8 (r_register_id r) && between_u 32 (r_value r) &&
      isfinite (r_value r)
  end.

(** ** Requests are values of the protocol *)

Lemma request_desc_in k d : request_desc k = Some d -> In d fci_descs.
Proof. destruct k; intros [= <-]; in_descs. Qed.

Lemma packed_normal f (l : list Z) :
  card f = WLC_PACKED -> valid_slot valid f (SPacked true l) = true ->
  normal_slot value_normal f (SPacked true l).
Proof. intros Hc Hv. unfold normal_slot. by rewrite Hc. Qed.

Lemma settings_normal s : settings_shape s = true -> value_normal DSD (s_settingsToWire s).
Proof.
  intros Hs%settings_valid_wire. cbn [valid DSD device_settings_desc] in Hs. cbn [value_normal DSD device_settings_desc].
  unfold s_settingsToWire in *. cbn [valid_fields] in Hs. rewrite !andb_true_iff in Hs.
  destruct Hs as (H1 & H2 & H3 & H4 & H5 & H6 & H7 & H8 & _).
  split_and!; try done; by apply packed_normal.
Qed.

Lemma name_normal name f :
  kind f = WLC_STRING -> max_length f = 31 -> (length name <= 31)%nat -> bytes_ok name ->
  normal_value value_normal f (name_value name).
Proof.
  intros Hk Hm Hl Hb. unfold normal_value, name_value. rewrite Hk, Hm. split; [lia|].
  rewrite Nat2Z.id. split; [|split].
  - apply Forall_app. split; [done|]. apply Forall_forall. intros x ->%repeat_spec. unfold in_u. lia.
  - rewrite take_app_length. done.
  - rewrite length_app, repeat_length. lia.
Qed.

Lemma name_slot_normal name f :
  card f = WLC_OPTIONAL -> kind f = WLC_STRING -> max_length f = 31 -> (length name <= 31)%nat ->
  bytes_ok name -> normal_slot value_normal f (SOpt true (name_value name)).
Proof. intros Hc ????. unfold normal_slot. rewrite Hc. by apply name_normal. Qed.

Lemma request_normal k r d :
  request_ok k r = true -> request_desc k = Some d -> value_normal d (request_value k r d).
Proof.
  intros Hok Hd. destruct k; try discriminate Hd; injection Hd as <-; cbn [request_ok] in Hok; try done;
    rewrite ?andb_true_iff in Hok; unfold request_value, request_members.
  - destruct Hok as [Hr Ht]. unfold between, s_kMaximumRelativeTimeout in Hr.
    assert (between_u 32 (r_requested_lease_timeout_ms r) = true) as Hr'
      by (unfold between_u, between; lia).
    cbv zeta. destruct (r_lease_token r =? 0); cbn; unfold normal_slot, normal_value; cbn;
      rewrite ?Hr', ?Ht; done.
  - cbn. unfold normal_slot, normal_value. cbn. destruct Hok as [-> _]. done.
  - destruct Hok as [Hl Hb]. split; [|exact I]. apply name_slot_normal; try done.
    + by apply Nat.leb_le.
    + by apply bytes_okb_spec.
  - destruct Hok as [_ Hs]. cbn. split; [|done]. by apply settings_normal.
  - cbn. unfold normal_slot, normal_value. cbn. unfold s_controlMode, between in *.
    assert ((1 <=? r_control_mode r) && (r_control_mode r <=? 4) = true) as -> by lia.
    split; [|done]. unfold between_s, between. lia.
  - cbn. unfold normal_slot, normal_value. cbn. unfold s_controlMode, between in *.
    assert ((1 <=? r_control_mode r) && (r_control_mode r <=? 4) = true) as -> by lia.
    split; [|done]. unfold between_s, between. lia.
  - cbn. unfold normal_slot, normal_value. cbn. unfold s_armMode, between in *.
    assert ((0 <=? r_arm_mode r) && (r_arm_mode r <=? 4) = true) as -> by lia.
    split; [|done]. unfold between_s, between. lia.
  - cbn. unfold normal_slot, normal_value. cbn. unfold between_u, between in *. split; [lia|done].
  - cbn. unfold normal_slot, normal_value. cbn. unfold between_u, between in *. split; [lia|done].
  - cbn. unfold normal_slot, normal_value. cbn. unfold between_u, between in *. split_and!; (lia || done).
  - cbn. unfold normal_slot, normal_value. cbn. unfold between_u, between in *. split_and!; (lia || done).
  - cbn. unfold normal_slot, normal_value. cbn. unfold between_u, between in *. split; [lia|done].
  - cbn. unfold normal_slot, normal_value. cbn. unfold between_u, between in *. split; [lia|done].
Qed.

(** ** Accepted calls *)

(** What an accepted submission leaves. *)
Definition queued_as (kind : RpcKind) (timeout id : Z) (request : OperationRequest)
    (e e' : FciWirelinkEndpoint) : Prop :=
  ep_step e e' /\ id = m_next_request_id e /\
  exists i s, (i < 7)%nat /\ m_operations e' !! i = Some s /\ o_request_id s = id /\
    o_kind s = kind /\ o_timeout_ms s = timeout /\ o_request s = request /\ o_state s = kQueued /\
    o_internal s = false.

Lemma submit_effect upgrading clock kind timeout request e st id e' :
  ep_inv e -> ids_left e ->
  s_submit upgrading clock kind timeout request false e = ((st, id), e') ->
  (st <> kOk -> e' = e) /\ (st = kOk -> queued_as kind timeout id request e e').
Proof.
  intros Hinv Hleft Hs.
  assert (ep_step e e') as Hstep.
  { pose proof (step_submit upgrading clock kind timeout request e Hleft) as H. by rewrite Hs in H. }
  destruct (submit_cases upgrading clock kind timeout request false e)
    as [(st' & Heq & Hne)|(_ & _ & i & e1 & Hal & Heq & Ho & _)];
    rewrite Hs in Heq; injection Heq as -> -> ->; [split; [done|by intros ->]|].
  split; [done|]. intros _. split; [done|]. split; [done|].
  destruct (allocate_some e false i Hinv Hal) as (Hi & Hi8 & Hi7).
  exists i. eexists. split; [destruct (decide (i = 7%nat)) as [?%Hi7|]; [done|lia]|].
  split; [rewrite Ho; apply list_lookup_insert_eq; by eapply lookup_lt_Some|]. done.
Qed.

Lemma good_timeout t : between_u 32 t = true -> bad_timeout t = false ->
  between 1 s_kMaximumRelativeTimeout t = true.
Proof. unfold bad_timeout, between_u, between, s_kMaximumRelativeTimeout. lia. Qed.

Lemma checked_effect upgrading clock ok kind request timeout e st id e' :
  ep_inv e -> ids_left e -> between_u 32 timeout = true ->
  checked upgrading clock ok kind request timeout e = ((st, id), e') ->
  (st <> kOk -> e' = e) /\
  (st = kOk -> queued_as kind timeout id request e e' /\ ok = true /\
     between 1 s_kMaximumRelativeTimeout timeout = true).
Proof.
  intros Hinv Hleft Ht. unfold checked, reject. destruct (bad_timeout timeout) eqn:Hbad; cbn [orb].
  { intros [= <- <- <-]. done. }
  destruct ok; cbn [negb]; [|by intros [= <- <- <-]].
  intros [? ?]%submit_effect; [|done..]. split; [done|]. intros Hk. split; [auto|]. split; [done|]. by apply good_timeout.
Qed.

Lemma holds_token l : holds_lease l = true -> l_token l <> 0.
Proof. unfold holds_lease. by destruct (l_state l); try done; intros ?%negb_true_iff%Z.eqb_neq. Qed.

Lemma mode_byte m : between_u 8 m = true -> u8 m = m.
Proof. unfold between_u, between. intros. apply wrap_id. unfold in_u. lia. Qed.

(** A public operation either fails and changes nothing, or it was given
    arguments in their ranges and queues one operation of its kind, under the
    returned id, with those arguments and the caller's timeout, in a slot that
    is not reserved. *)
Theorem public_call_effect upgrading clock c e st id e' :
  reachable e -> ids_left e -> call_typed c = true -> between_u 64 (l_token (m_lease e)) = true ->
  run_call upgrading clock c e = ((st, id), e') ->
  (st <> kOk -> e' = e) /\
  (st = kOk -> exists request, queued_as (call_kind c) (call_timeout c) id request e e' /\
     between 1 s_kMaximumRelativeTimeout (call_timeout c) = true /\
     request_ok (call_kind c) request = true).
Proof.
  intros Hr Hleft Hty Htok. pose proof (reachable_inv e Hr) as Hinv.
  unfold call_typed in Hty. apply andb_prop in Hty as [Ht Hty].
  assert (forall ok kind request timeout, between_u 32 timeout = true ->
    (ok = true -> request_ok kind request = true) ->
    checked upgrading clock ok kind request timeout e = ((st, id), e') ->
    (st <> kOk -> e' = e) /\ (st = kOk -> exists request, queued_as kind timeout id request e e' /\
      between 1 s_kMaximumRelativeTimeout timeout = true /\ request_ok kind request = true)) as Hchk.
  { intros ok kind request timeout Ht' Hok [H1 H2]%checked_effect; [|done..]. split; [done|].
    intros (? & ? & ?)%H2. exists request. auto. }
  destruct c; cbn [run_call call_kind call_timeout] in *;
    try (apply Hchk; [exact Ht|]; cbn; rewrite ?andb_true_iff in *; unfold between_u, between, wrap in *;
      try done; try (intros Hx; split_and!; tauto || lia); lia).
  - unfold acquireControlLease, reject. destruct (bad_timeout requested) eqn:Hbr; [by intros [= <- <- <-]|].
    destruct (bad_timeout timeout) eqn:Hbt; [by intros [= <- <- <-]|]. cbn [orb].
    destruct (l_state (m_lease e)); try (by intros [= <- <- <-]);
      (intros [H1 H2]%submit_effect; [|done..]; (split; [done|]; intros Hq%H2; eexists;
        split; [exact Hq|]; split; [by apply good_timeout|]; cbn [request_ok lease_request
          r_requested_lease_timeout_ms r_lease_token]; rewrite (good_timeout requested) by done; done)).
  - unfold releaseControlLease, reject. destruct (bad_timeout timeout) eqn:Hbt; [by intros [= <- <- <-]|].
    destruct (holds_lease (m_lease e)) eqn:Hh; cbn [negb]; [|by intros [= <- <- <-]].
    intros [H1 H2]%submit_effect; [|done..]. split; [done|]. intros Hq%H2. eexists.
    split; [exact Hq|]. split; [by apply good_timeout|]. cbn. rewrite Htok. cbn.
    apply holds_token in Hh. by rewrite (proj2 (Z.eqb_neq _ 0) Hh).
  - apply Hchk; [exact Ht|]. rewrite mode_byte by done. cbn. unfold between. lia.
  - apply Hchk; [exact Ht|]. rewrite mode_byte by done. cbn. unfold between. lia.
  - apply Hchk; [exact Ht|]. rewrite mode_byte by done. cbn. unfold between, between_u, between in *. lia.
Qed.

(** What the owner sends for an accepted call is exactly the caller's
    request: its payload decodes to the request's message. *)
Theorem request_payload_roundtrip kind request d cap n out :
  request_ok kind request = true -> request_desc kind = Some d ->
  value_encode d (request_value kind request d) cap = (Ok n, out) ->
  value_decode d out = Ok (request_value kind request d).
Proof.
  intros Hok Hd. apply value_encode_decode; [by eapply request_desc_in|by apply request_normal].
Qed.

(** Device settings survive the way to the device: the message that is sent
    for an accepted [setDeviceSettings] decodes, and the reader of settings
    finds in it the caller's settings. *)
Theorem settings_payload s cap n out v :
  s_validSettings s = true -> settings_shape s = true ->
  let d := set_device_settings_request_desc in
  value_encode d (request_value kSetDeviceSettings (settings_request s) d) cap = (Ok n, out) ->
  value_decode d out = Ok v ->
  fst (wire_msg d "settings" v) = true /\ s_settingsFromWire (snd (wire_msg d "settings" v)) = Some s.
Proof.
  intros Hv Hs d He Hd.
  rewrite (value_encode_decode d (request_value kSetDeviceSettings (settings_request s) d) cap n out) in Hd.
  - injection Hd as <-. split; [done|]. by apply settings_roundtrip.
  - subst d. in_descs.
  - apply request_normal; [|done]. cbn. by rewrite Hv, Hs.
  - done.
Qed.

(** ** Instances *)

Lemma public_call_effect_witness :
  exists id e', run_call false 1005 (CallSetZero 3 250) run_held = ((kOk, id), e') /\
    exists request, queued_as kSetZero 250 id request run_held e'.
Proof.
  assert (exists id e', run_call false 1005 (CallSetZero 3 250) run_held = ((kOk, id), e')) as (id & e' & He).
  { eexists _, _. vm_compute. reflexivity. }
  exists id, e'. split; [exact He|].
  destruct (public_call_effect false 1005 (CallSetZero 3 250) run_held kOk id e' reach_held) as [_ H];
    [vm_compute; reflexivity|reflexivity|vm_compute; reflexivity|exact He|].
  destruct (H eq_refl) as (request & Hq & _). exists request. exact Hq.
Defined.

Lemma request_payload_roundtrip_witness :
  request_ok kMotorRegisterWrite (motor_request 2 17 1065353216) = true /\
  value_decode motor_register_write_request_desc [16; 2; 24; 17; 37; 63; 128; 0; 0] =
    Ok (request_value kMotorRegisterWrite (motor_request 2 17 1065353216) motor_register_write_request_desc).
Proof.
  split; [vm_compute; reflexivity|].
  refine (request_payload_roundtrip kMotorRegisterWrite (motor_request 2 17 1065353216) _ 64 9 _ _ _ _);
    vm_compute; reflexivity.
Defined.

(** Settings with symmetric joint limits. *)
Definition sample_settings : DeviceSettings := {|
  m_firmware_period_us := 2000; m_gravity_scale := repeat 1065353216 6;
  m_torque_fold := repeat (Build_TorqueFoldParameters 1065353216 1073741824 1065353216 0) 7;
  m_joint_limits := repeat (Build_JointLimits 3212836864 1065353216) 6 |}.
Definition settings_bytes : bytes :=
  snd (value_encode set_device_settings_request_desc (request_value kSetDeviceSettings
    (settings_request sample_settings) set_device_settings_request_desc) 512).
Definition settings_value : wstruct :=
  match value_decode set_device_settings_request_desc settings_bytes with Ok v => v | Err _ => [] end.

Lemma settings_payload_witness :
  s_validSettings sample_settings = true /\ length settings_bytes = 206%nat /\
  s_settingsFromWire (snd (wire_msg set_device_settings_request_desc "settings" settings_value)) =
    Some sample_settings.
Proof.
  split; [vm_compute; reflexivity|]. split; [vm_compute; reflexivity|].
  refine (proj2 (settings_payload sample_settings 512 206 settings_bytes settings_value _ _ _ _));
    vm_compute; reflexivity.
Defined.
