(* ===== verification/Commands.v ===== *)
(** * Real-time commands

    The ten [send*] functions of [src/FciWirelinkEndpoint.cpp] (lines 782-1168)
    and the command types of [include/florid/ControlTypes.hpp]: the checks of
    the arguments, the lease token, the sequence number, the wire struct and
    its payload.

    [m_command_sequence] is an atomic outside the endpoint's record and is
    passed separately.  The executor that transmits the payload is the link
    library's; its answer is an argument. *)

From Stdlib Require Import String.
From S2P Require Import Prelude WlcWire WlcSchema WlcCodec WlcRoundtrip FciMessages FciApi FciProperties.
From S2P Require Import DeviceTypes Endpoint EndpointOps EndpointInv EndpointProps.

(** ** Command types *)

Record JointMIT := {
  mit_q : list Z; mit_dq : list Z; mit_tau : list Z; mit_kp : list Z; mit_kd : list Z;
  mit_firmware_gravity : bool
}.
Record JointPosVel := { pv_q : list Z; pv_dq : list Z }.
Record JointVel := { vel_dq : list Z }.
Record JointPVT := { pvt_q : list Z; pvt_dq_limit : list Z; pvt_current_limit_norm : list Z }.
Record CartesianPose := { pose_T : list Z; pose_kp : list Z; pose_kd : list Z }.
Record CartesianVelocities := { cv_v : list Z; cv_kp : list Z; cv_kd : list Z }.

(** [s_command.m_q[0]]. *)
Definition first (l : list Z) : Z := nth 0 l 0.

Definition kCartesianPose : Z := Z.shiftl 1 4.
Definition kCartesianVelocity : Z := Z.shiftl 1 5.
Definition unsupported (e : FciWirelinkEndpoint) (capability : Z) : bool :=
  Z.land (m_command_capabilities e) capability =? 0.

Definition JOINT_MIT_COMMAND_MESSAGE_ID : Z := 25345.
Definition GRIPPER_MIT_COMMAND_MESSAGE_ID : Z := 25349.
Definition JOINT_POSITION_VELOCITY_COMMAND_MESSAGE_ID : Z := 25350.
Definition JOINT_VELOCITY_COMMAND_MESSAGE_ID : Z := 25351.
Definition JOINT_PVT_COMMAND_MESSAGE_ID : Z := 25352.
Definition CARTESIAN_POSE_COMMAND_MESSAGE_ID : Z := 25353.
Definition CARTESIAN_VELOCITY_COMMAND_MESSAGE_ID : Z := 25354.
Definition GRIPPER_POSITION_VELOCITY_COMMAND_MESSAGE_ID : Z := 25361.
Definition GRIPPER_VELOCITY_COMMAND_MESSAGE_ID : Z := 25362.
Definition GRIPPER_PVT_COMMAND_MESSAGE_ID : Z := 25363.

(** [FCI_DEVICE_ENDPOINT_MAX_PAYLOAD]. *)
Definition s_kTxPayloadSize : Z := 2048.

(** ** Sending *)

(** The status, the sequence counter and what was given to the executor. *)
Definition SendResult : Type := FciEndpointStatus * Z * option (Z * bytes).

Section send.
Context (upgrading : bool).
(** [m_executor.submitLatest]. *)
Context (submitLatest : Z -> bytes -> wl_result).
(** [WirelinkExecutor::s_kMaximumCommandPayload]. *)
Context (s_kMaximumCommandPayload : Z).

(** The part the functions share, after the arguments were checked. *)
Definition send_checked (d : wlc_desc) (message_id capacity : Z) (members : wstruct -> wstruct)
    (sdk_timestamp_us seq : Z) (e : FciWirelinkEndpoint) : SendResult :=
  let '(st, token) := s_commandToken upgrading e in
  if decide (st = kOk) then
    let sequence := u32 (seq + 1) in
    let w := set_scalar d "lease_token" token (set_scalar d "sdk_timestamp_us" sdk_timestamp_us
      (set_scalar d "sequence" sequence (members (wlc_clear d [])))) in
    match wlc_encode d w capacity with
    | (Ok _, payload) =>
        (s_endpointStatus (submitLatest message_id payload), sequence, Some (message_id, payload))
    | (Err _, _) => (kCodecError, sequence, None)
    end
  else (st, seq, None).

Definition sendJointMit (c : JointMIT) (dt ts seq : Z) (e : FciWirelinkEndpoint) : SendResult :=
  let d := joint_mit_command_desc in
  if (dt =? 0) || negb (s_allFinite (mit_q c)) || negb (s_allFinite (mit_dq c)) ||
     negb (s_allFinite (mit_tau c)) || negb (s_allFinite (mit_kp c)) || negb (s_allFinite (mit_kd c))
  then (kInvalidArgument, seq, None)
  else
    send_checked d JOINT_MIT_COMMAND_MESSAGE_ID s_kMaximumCommandPayload
      (fun w => set_scalar d "gravity_compensation" (Z.b2z (mit_firmware_gravity c))
        (set_scalar d "dt_us" dt (set_array d "kd" (mit_kd c) (set_array d "kp" (mit_kp c)
        (set_array d "torque" (mit_tau c) (set_array d "velocity" (mit_dq c)
        (set_array d "position" (mit_q c) w))))))) ts seq e.

Definition sendGripperMit (c : JointMIT) (dt ts seq : Z) (e : FciWirelinkEndpoint) : SendResult :=
  let d := gripper_mit_command_desc in
  if (dt =? 0) || negb (isfinite (first (mit_q c))) || negb (isfinite (first (mit_dq c))) ||
     negb (isfinite (first (mit_tau c))) || negb (isfinite (first (mit_kp c))) ||
     negb (isfinite (first (mit_kd c)))
  then (kInvalidArgument, seq, None)
  else
    send_checked d GRIPPER_MIT_COMMAND_MESSAGE_ID s_kTxPayloadSize
      (fun w => set_scalar d "gravity_compensation" (Z.b2z (mit_firmware_gravity c))
        (set_scalar d "dt_us" dt (set_scalar d "kd" (first (mit_kd c))
        (set_scalar d "kp" (first (mit_kp c)) (set_scalar d "torque" (first (mit_tau c))
        (set_scalar d "velocity" (first (mit_dq c))
        (set_scalar d "position" (first (mit_q c)) w))))))) ts seq e.

Definition sendJointPositionVelocity (c : JointPosVel) (ts seq : Z) (e : FciWirelinkEndpoint)
    : SendResult :=
  let d := joint_position_velocity_command_desc in
  if negb (s_allFinite (pv_q c)) || negb (s_allFinite (pv_dq c)) then (kInvalidArgument, seq, None)
  else
    send_checked d JOINT_POSITION_VELOCITY_COMMAND_MESSAGE_ID s_kTxPayloadSize
      (fun w => set_scalar d "enabled_mask" 63 (set_array d "velocity" (pv_dq c)
        (set_array d "position" (pv_q c) w))) ts seq e.

Definition sendJointVelocity (c : JointVel) (ts seq : Z) (e : FciWirelinkEndpoint) : SendResult :=
  let d := joint_velocity_command_desc in
  if negb (s_allFinite (vel_dq c)) then (kInvalidArgument, seq, None)
  else
    send_checked d JOINT_VELOCITY_COMMAND_MESSAGE_ID s_kTxPayloadSize
      (fun w => set_scalar d "enabled_mask" 63 (set_array d "velocity" (vel_dq c) w)) ts seq e.

Definition sendJointPvt (c : JointPVT) (ts seq : Z) (e : FciWirelinkEndpoint) : SendResult :=
  let d := joint_pvt_command_desc in
  if negb (s_allFinite (pvt_q c)) || negb (s_allFinite (pvt_dq_limit c)) ||
     negb (s_allFinite (pvt_current_limit_norm c))
  then (kInvalidArgument, seq, None)
  else
    send_checked d JOINT_PVT_COMMAND_MESSAGE_ID s_kTxPayloadSize
      (fun w => set_scalar d "enabled_mask" 63
        (set_array d "current_limit_normalized" (pvt_current_limit_norm c)
        (set_array d "velocity_limit" (pvt_dq_limit c) (set_array d "position" (pvt_q c) w))))
      ts seq e.

Definition sendCartesianPose (c : CartesianPose) (dt ts seq : Z) (e : FciWirelinkEndpoint)
    : SendResult :=
  let d := cartesian_pose_command_desc in
  if unsupported e kCartesianPose then (kUnsupported, seq, None)
  else if (dt =? 0) || negb (s_allFinite (pose_T c)) || negb (s_allFinite (pose_kp c)) ||
     negb (s_allFinite (pose_kd c))
  then (kInvalidArgument, seq, None)
  else
    send_checked d CARTESIAN_POSE_COMMAND_MESSAGE_ID s_kTxPayloadSize
      (fun w => set_scalar d "gravity_compensation" 0 (set_scalar d "dt_us" dt
        (set_array d "kd" (pose_kd c) (set_array d "kp" (pose_kp c)
        (set_array d "transform" (pose_T c) w))))) ts seq e.

Definition sendCartesianVelocity (c : CartesianVelocities) (dt ts seq : Z) (e : FciWirelinkEndpoint)
    : SendResult :=
  let d := cartesian_velocity_command_desc in
  if unsupported e kCartesianVelocity then (kUnsupported, seq, None)
  else if (dt =? 0) || negb (s_allFinite (cv_v c)) || negb (s_allFinite (cv_kp c)) ||
     negb (s_allFinite (cv_kd c))
  then (kInvalidArgument, seq, None)
  else
    send_checked d CARTESIAN_VELOCITY_COMMAND_MESSAGE_ID s_kTxPayloadSize
      (fun w => set_scalar d "gravity_compensation" 0 (set_scalar d "dt_us" dt
        (set_array d "kd" (cv_kd c) (set_array d "kp" (cv_kp c)
        (set_array d "twist" (cv_v c) w))))) ts seq e.

Definition sendGripperPositionVelocity (c : JointPosVel) (ts seq : Z) (e : FciWirelinkEndpoint)
    : SendResult :=
  let d := gripper_position_velocity_command_desc in
  if negb (isfinite (first (pv_q c))) || negb (isfinite (first (pv_dq c)))
  then (kInvalidArgument, seq, None)
  else
    send_checked d GRIPPER_POSITION_VELOCITY_COMMAND_MESSAGE_ID s_kTxPayloadSize
      (fun w => set_scalar d "velocity" (first (pv_dq c))
        (set_scalar d "position" (first (pv_q c)) w)) ts seq e.

Definition sendGripperVelocity (c : JointVel) (ts seq : Z) (e : FciWirelinkEndpoint) : SendResult :=
  let d := gripper_velocity_command_desc in
  if negb (isfinite (first (vel_dq c))) then (kInvalidArgument, seq, None)
  else
    send_checked d GRIPPER_VELOCITY_COMMAND_MESSAGE_ID s_kTxPayloadSize
      (set_scalar d "velocity" (first (vel_dq c))) ts seq e.

Definition sendGripperPvt (c : JointPVT) (ts seq : Z) (e : FciWirelinkEndpoint) : SendResult :=
  let d := gripper_pvt_command_desc in
  if negb (isfinite (first (pvt_q c))) || negb (isfinite (first (pvt_dq_limit c))) ||
     negb (isfinite (first (pvt_current_limit_norm c)))
  then (kInvalidArgument, seq, None)
  else
    send_checked d GRIPPER_PVT_COMMAND_MESSAGE_ID s_kTxPayloadSize
      (fun w => set_scalar d "current_limit_normalized" (first (pvt_current_limit_norm c))
        (set_scalar d "velocity_limit" (first (pvt_dq_limit c))
        (set_scalar d "position" (first (pvt_q c)) w))) ts seq e.
End send.

(** ** The specification of a command *)

Inductive Command :=
| CmdJointMit (c : JointMIT) (dt : Z)
| CmdGripperMit (c : JointMIT) (dt : Z)
| CmdJointPositionVelocity (c : JointPosVel)
| CmdJointVelocity (c : JointVel)
| CmdJointPvt (c : JointPVT)
| CmdCartesianPose (c : CartesianPose) (dt : Z)
| CmdCartesianVelocity (c : CartesianVelocities) (dt : Z)
| CmdGripperPositionVelocity (c : JointPosVel)
| CmdGripperVelocity (c : JointVel)
| CmdGripperPvt (c : JointPVT).

Definition send (upgrading : bool) (submitLatest : Z -> bytes -> wl_result) (cap : Z) (c : Command)
    : Z -> Z -> FciWirelinkEndpoint -> SendResult :=
  match c with
  | CmdJointMit c dt => sendJointMit upgrading submitLatest cap c dt
  | CmdGripperMit c dt => sendGripperMit upgrading submitLatest c dt
  | CmdJointPositionVelocity c => sendJointPositionVelocity upgrading submitLatest c
  | CmdJointVelocity c => sendJointVelocity upgrading submitLatest c
  | CmdJointPvt c => sendJointPvt upgrading submitLatest c
  | CmdCartesianPose c dt => sendCartesianPose upgrading submitLatest c dt
  | CmdCartesianVelocity c dt => sendCartesianVelocity upgrading submitLatest c dt
  | CmdGripperPositionVelocity c => sendGripperPositionVelocity upgrading submitLatest c
  | CmdGripperVelocity c => sendGripperVelocity upgrading submitLatest c
  | CmdGripperPvt c => sendGripperPvt upgrading submitLatest c
  end.

Definition command_desc (c : Command) : wlc_desc :=
  match c with
  | CmdJointMit _ _ => joint_mit_command_desc
  | CmdGripperMit _ _ => gripper_mit_command_desc
  | CmdJointPositionVelocity _ => joint_position_velocity_command_desc
  | CmdJointVelocity _ => joint_velocity_command_desc
  | CmdJointPvt _ => joint_pvt_command_desc
  | CmdCartesianPose _ _ => cartesian_pose_command_desc
  | CmdCartesianVelocity _ _ => cartesian_velocity_command_desc
  | CmdGripperPositionVelocity _ => gripper_position_velocity_command_desc
  | CmdGripperVelocity _ => gripper_velocity_command_desc
  | CmdGripperPvt _ => gripper_pvt_command_desc
  end.

(** The id and the size of the message. *)
Definition command_id (c : Command) : Z * Z :=
  match c with
  | CmdJointMit _ _ => (25345, 160)
  | CmdGripperMit _ _ => (25349, 55)
  | CmdJointPositionVelocity _ => (25350, 77)
  | CmdJointVelocity _ => (25351, 51)
  | CmdJointPvt _ => (25352, 103)
  | CmdCartesianPose _ _ => (25353, 148)
  | CmdCartesianVelocity _ _ => (25354, 108)
  | CmdGripperPositionVelocity _ => (25361, 33)
  | CmdGripperVelocity _ => (25362, 28)
  | CmdGripperPvt _ => (25363, 38)
  end.

(** The floats a command carries, and its period where it has one. *)
Definition command_floats (c : Command) : list Z :=
  match c with
  | CmdJointMit c _ => mit_q c ++ mit_dq c ++ mit_tau c ++ mit_kp c ++ mit_kd c
  | CmdGripperMit c _ =>
      [first (mit_q c); first (mit_dq c); first (mit_tau c); first (mit_kp c); first (mit_kd c)]
  | CmdJointPositionVelocity c => pv_q c ++ pv_dq c
  | CmdJointVelocity c => vel_dq c
  | CmdJointPvt c => pvt_q c ++ pvt_dq_limit c ++ pvt_current_limit_norm c
  | CmdCartesianPose c _ => pose_T c ++ pose_kp c ++ pose_kd c
  | CmdCartesianVelocity c _ => cv_v c ++ cv_kp c ++ cv_kd c
  | CmdGripperPositionVelocity c => [first (pv_q c); first (pv_dq c)]
  | CmdGripperVelocity c => [first (vel_dq c)]
  | CmdGripperPvt c =>
      [first (pvt_q c); first (pvt_dq_limit c); first (pvt_current_limit_norm c)]
  end.
Definition command_dt (c : Command) : option Z :=
  match c with
  | CmdJointMit _ dt | CmdGripperMit _ dt | CmdCartesianPose _ dt | CmdCartesianVelocity _ dt => Some dt
  | _ => None
  end.
Definition command_ok (c : Command) : bool :=
  match command_dt c with Some dt => negb (dt =? 0) | None => true end && s_allFinite (command_floats c).
Definition command_supported (e : FciWirelinkEndpoint) (c : Command) : bool :=
  match c with
  | CmdCartesianPose _ _ => Z.testbit (m_command_capabilities e) 4
  | CmdCartesianVelocity _ _ => Z.testbit (m_command_capabilities e) 5
  | _ => true
  end.

(** The lengths of the arrays. *)
Definition command_arrays (c : Command) : list (list Z * nat) :=
  match c with
  | CmdJointMit c _ | CmdGripperMit c _ =>
      [(mit_q c, 6); (mit_dq c, 6); (mit_tau c, 6); (mit_kp c, 6); (mit_kd c, 6)]
  | CmdJointPositionVelocity c | CmdGripperPositionVelocity c => [(pv_q c, 6); (pv_dq c, 6)]
  | CmdJointVelocity c | CmdGripperVelocity c => [(vel_dq c, 6)]
  | CmdJointPvt c | CmdGripperPvt c =>
      [(pvt_q c, 6); (pvt_dq_limit c, 6); (pvt_current_limit_norm c, 6)]
  | CmdCartesianPose c _ => [(pose_T c, 16); (pose_kp c, 6); (pose_kd c, 6)]
  | CmdCartesianVelocity c _ => [(cv_v c, 6); (cv_kp c, 6); (cv_kd c, 6)]
  end%nat.
Definition command_shape (c : Command) : bool :=
  forallb (fun p => (length (fst p) =? snd p)%nat && forallb (between_u 32) (fst p))
    (command_arrays c) &&
  match command_dt c with Some dt => between_u 32 dt | None => true end.

(** What the device reads. *)
Definition scalar_member (z : Z) : slot := SOpt true (VInt z).
Definition floats_member (l : list Z) : slot := SPacked true l.
Definition command_wire (c : Command) (ts seq token : Z) : wstruct :=
  match c with
  | CmdJointMit c dt =>
      [floats_member (mit_q c); floats_member (mit_dq c); floats_member (mit_tau c); floats_member (mit_kp c); floats_member (mit_kd c);
       scalar_member dt; scalar_member seq; scalar_member (Z.b2z (mit_firmware_gravity c)); scalar_member ts; scalar_member token]
  | CmdGripperMit c dt =>
      [scalar_member (first (mit_q c)); scalar_member (first (mit_dq c)); scalar_member (first (mit_tau c));
       scalar_member (first (mit_kp c)); scalar_member (first (mit_kd c)); scalar_member dt; scalar_member seq;
       scalar_member (Z.b2z (mit_firmware_gravity c)); scalar_member ts; scalar_member token]
  | CmdJointPositionVelocity c =>
      [floats_member (pv_q c); floats_member (pv_dq c); scalar_member 63; scalar_member seq; scalar_member ts; scalar_member token]
  | CmdJointVelocity c => [floats_member (vel_dq c); scalar_member 63; scalar_member seq; scalar_member ts; scalar_member token]
  | CmdJointPvt c =>
      [floats_member (pvt_q c); floats_member (pvt_dq_limit c); floats_member (pvt_current_limit_norm c); scalar_member 63;
       scalar_member seq; scalar_member ts; scalar_member token]
  | CmdCartesianPose c dt =>
      [floats_member (pose_T c); floats_member (pose_kp c); floats_member (pose_kd c); scalar_member dt; scalar_member seq; scalar_member 0;
       scalar_member ts; scalar_member token]
  | CmdCartesianVelocity c dt =>
      [floats_member (cv_v c); floats_member (cv_kp c); floats_member (cv_kd c); scalar_member dt; scalar_member seq; scalar_member 0;
       scalar_member ts; scalar_member token]
  | CmdGripperPositionVelocity c =>
      [scalar_member (first (pv_q c)); scalar_member (first (pv_dq c)); scalar_member seq; scalar_member ts; scalar_member token]
  | CmdGripperVelocity c => [scalar_member (first (vel_dq c)); scalar_member seq; scalar_member ts; scalar_member token]
  | CmdGripperPvt c =>
      [scalar_member (first (pvt_q c)); scalar_member (first (pvt_dq_limit c));
       scalar_member (first (pvt_current_limit_norm c)); scalar_member seq; scalar_member ts; scalar_member token]
  end.

(** ** The implementation meets it *)

Lemma allFinite_app a b : s_allFinite (a ++ b) = s_allFinite a && s_allFinite b.
Proof. apply forallb_app. Qed.

Lemma capability_bit e k : 0 <= k -> unsupported e (Z.shiftl 1 k) = negb (Z.testbit (m_command_capabilities e) k).
Proof.
  intros Hk. unfold unsupported. rewrite Z.shiftl_1_l.
  destruct (Z.testbit (m_command_capabilities e) k) eqn:Hb; cbn [negb].
  - apply Z.eqb_neq. intros H0. assert (Z.testbit (Z.land (m_command_capabilities e) (2 ^ k)) k = true) as Ht
      by (rewrite Z.land_spec, Hb, Z.pow2_bits_true; done).
    by rewrite H0, Z.bits_0 in Ht.
  - apply Z.eqb_eq, Z.bits_inj'. intros n Hn. rewrite Z.land_spec, Z.bits_0.
    destruct (Z.eq_dec k n) as [->|Hne]; [by rewrite Hb|]. rewrite Z.pow2_bits_false by done.
    apply andb_false_r.
Qed.

Lemma pose_bit e : unsupported e kCartesianPose = negb (Z.testbit (m_command_capabilities e) 4).
Proof. by apply (capability_bit e 4). Qed.
Lemma velocity_bit e : unsupported e kCartesianVelocity = negb (Z.testbit (m_command_capabilities e) 5).
Proof. by apply (capability_bit e 5). Qed.

(** [send] as one decision. *)
Lemma send_unfold upgrading submitLatest cap c ts seq e :
  send upgrading submitLatest cap c ts seq e =
  if negb (command_supported e c) then (kUnsupported, seq, None)
  else if negb (command_ok c) then (kInvalidArgument, seq, None)
  else
    let '(st, token) := s_commandToken upgrading e in
    if decide (st = kOk) then
      let sequence := u32 (seq + 1) in
      match wlc_encode (command_desc c) (command_wire c ts sequence token)
        match c with CmdJointMit _ _ => cap | _ => s_kTxPayloadSize end with
      | (Ok _, payload) =>
          (s_endpointStatus (submitLatest (fst (command_id c)) payload), sequence,
           Some (fst (command_id c), payload))
      | (Err _, _) => (kCodecError, sequence, None)
      end
    else (st, seq, None).
Proof.
  destruct c; cbn [send command_supported negb]; unfold command_ok; cbn [command_dt command_floats];
    rewrite ?allFinite_app;
    [unfold sendJointMit|unfold sendGripperMit|unfold sendJointPositionVelocity
    |unfold sendJointVelocity|unfold sendJointPvt|unfold sendCartesianPose
    |unfold sendCartesianVelocity|unfold sendGripperPositionVelocity|unfold sendGripperVelocity
    |unfold sendGripperPvt]; cbv zeta;
    rewrite ?pose_bit, ?velocity_bit;
    unfold s_allFinite; cbn [forallb]; rewrite ?andb_true_r, ?andb_true_l, ?andb_assoc, ?negb_andb,
      ?negb_involutive.
  all: repeat match goal with |- (if ?b then _ else _) = _ => destruct b; [reflexivity|] end.
  all: unfold send_checked; destruct (s_commandToken upgrading e) as [st token].
  all: destruct (decide (st = kOk)); [|reflexivity].
  all: set (sequence := u32 (seq + 1)); reflexivity.
Qed.

Lemma first_range l n : length l = S n -> forallb (between_u 32) l = true -> between_u 32 (first l) = true.
Proof. destruct l; [done|]. cbn. by intros _ [? _]%andb_prop. Qed.

Lemma first_range6 l : (length l =? 6)%nat && forallb (between_u 32) l = true ->
  length l = 6%nat /\ forallb (between_u 32) l = true /\ between_u 32 (first l) = true.
Proof.
  intros [Hl%Nat.eqb_eq Hf]%andb_prop. split; [done|]. split; [done|]. by apply (first_range l 5).
Qed.

Lemma range16 l : (length l =? 16)%nat && forallb (between_u 32) l = true ->
  length l = 16%nat /\ forallb (between_u 32) l = true.
Proof. by intros [Hl%Nat.eqb_eq Hf]%andb_prop. Qed.

Lemma command_in c : In (command_desc c) fci_descs.
Proof. destruct c; in_descs. Qed.

Lemma command_canon c ts seq token :
  canon (command_desc c) (command_wire c ts seq token) = command_wire c ts seq token.
Proof. by destruct c. Qed.

Lemma command_measure c ts seq token :
  wlc_measure (command_desc c) (command_wire c ts seq token) = Ok (snd (command_id c)).
Proof. destruct c as [[? ? ? ? ? []] ?|[? ? ? ? ? []] ?| | | | | | | | ]; reflexivity. Qed.

Lemma command_valid c ts seq token :
  command_shape c = true -> between_u 64 ts = true -> between_u 64 token = true ->
  valid (command_desc c) (command_wire c ts (u32 seq) token) = true.
Proof.
  intros Hs Hts Htok.
  assert (between_u 32 (u32 seq) = true) as Hseq.
  { pose proof (wrap_range 32 seq ltac:(lia)) as H. unfold in_u in H. unfold between_u, between. lia. }
  assert (forall b, between_u 1 (Z.b2z b) = true) as Hb by (by intros []).
  assert (forall l : list Z, length l = 6%nat -> (Z.of_nat (length l) =? 6) = true) as H6 by (intros l ->; done).
  assert (forall l : list Z, length l = 16%nat -> (Z.of_nat (length l) =? 16) = true) as H16 by (intros l ->; done).
  revert Hseq. generalize (u32 seq). intros sq Hseq.
  unfold command_shape in Hs. apply andb_prop in Hs as [Hs Hdt].
  destruct c; cbn [command_arrays command_dt forallb fst snd] in Hs, Hdt;
    repeat match type of Hs with (_ && _) && _ = true => apply andb_prop in Hs; destruct Hs as [? Hs] end;
    clear Hs; repeat match goal with
    | H : (length _ =? 6)%nat && _ = true |- _ => apply first_range6 in H as (? & ? & ?)
    | H : (length _ =? 16)%nat && _ = true |- _ => apply range16 in H as (? & ?)
    end;
    cbn -[between_u forallb Z.of_nat Z.eqb first Z.b2z Z.mul Z.pow]; rewrite ?H6, ?H16 by done;
    change (8 * 4) with 32;
    repeat match goal with H : ?b = true |- _ => rewrite H; clear H end; rewrite ?Hb; reflexivity.
Qed.

(** ** Theorems *)

(** C28: an accepted command reaches the executor as one message of its type that
    decodes to exactly the caller's floats, period and timestamp, the next
    sequence number and the token of the lease that is held, and has the size
    of its type. *)
Theorem command_sent upgrading submitLatest cap c ts seq e token old :
  command_shape c = true -> between_u 64 ts = true -> between_u 64 token = true -> 160 <= cap ->
  command_supported e c = true -> command_ok c = true ->
  s_commandToken upgrading e = (kOk, token) ->
  exists payload,
    send upgrading submitLatest cap c ts seq e =
      (s_endpointStatus (submitLatest (fst (command_id c)) payload), u32 (seq + 1),
       Some (fst (command_id c), payload)) /\
    Z.of_nat (length payload) = snd (command_id c) /\
    wlc_decode (command_desc c) payload old =
      (WL_CODEC_OK, command_wire c ts (u32 (seq + 1)) token).
Proof.
  intros Hs Hts Htok Hcap Hsup Hok Htoken. rewrite send_unfold, Hsup, Hok, Htoken. cbn [negb].
  rewrite decide_True by done. cbv zeta.
  pose proof (command_valid c ts (seq + 1) token Hs Hts Htok) as Hv.
  pose proof (command_measure c ts (u32 (seq + 1)) token) as Hm.
  destruct (desc_wf _ (command_in c)) as [Hwf _].
  exists (enc (command_desc c) (command_wire c ts (u32 (seq + 1)) token)).
  unfold wlc_encode. rewrite Hm, (emit_cursor _ _ _ Hwf Hv Hm).
  rewrite (proj2 (Z.ltb_ge _ _)) by (unfold s_kTxPayloadSize; destruct c; cbn; lia). split; [done|]. split.
  - symmetry. by apply (measure_enc false _ Hwf _ _ Hv Hm).
  - rewrite <- command_canon at 2. by eapply decode_enc.
Qed.

(** A command the firmware does not support, one with a float that is not
    finite or a zero period, and one without a lease are refused in this order,
    with their own status; nothing is given to the executor and the sequence
    number does not advance. *)
Theorem command_refused upgrading submitLatest cap c ts seq e :
  (command_supported e c = false ->
     send upgrading submitLatest cap c ts seq e = (kUnsupported, seq, None)) /\
  (command_supported e c = true -> command_ok c = false ->
     send upgrading submitLatest cap c ts seq e = (kInvalidArgument, seq, None)) /\
  (command_supported e c = true -> command_ok c = true ->
     fst (s_commandToken upgrading e) <> kOk ->
     send upgrading submitLatest cap c ts seq e = (fst (s_commandToken upgrading e), seq, None)).
Proof.
  rewrite send_unfold. split_and!; intros ->; [done|by intros ->|]. intros -> Hne. cbn [negb].
  destruct (s_commandToken upgrading e) as [st token]. by rewrite decide_False.
Qed.

(** ** Instances *)

Definition sample_velocity : Command := CmdJointVelocity {| vel_dq := [0; 1065353216; 0; 0; 0; 3212836864] |}.

Lemma command_sent_witness :
  s_commandToken false run_held = (kOk, 77) /\
  exists payload,
    send false (fun _ _ => WL_OK) 256 sample_velocity 5000 41 run_held =
      (s_endpointStatus WL_OK, u32 (41 + 1), Some (fst (command_id sample_velocity), payload)) /\
    Z.of_nat (length payload) = snd (command_id sample_velocity).
Proof.
  assert (s_commandToken false run_held = (kOk, 77)) as Ht by (vm_compute; reflexivity).
  split; [exact Ht|].
  destruct (command_sent false (fun _ _ => WL_OK) 256 sample_velocity 5000 41 run_held 77 [])
    as (payload & Hs & Hl & _); [vm_compute; reflexivity|reflexivity|reflexivity|lia|reflexivity
      |vm_compute; reflexivity|exact Ht|].
  exists payload. split; [exact Hs|exact Hl].
Defined.

Lemma command_refused_witness :
  send false (fun _ _ => WL_OK) 256 sample_velocity 5000 41 endpoint0 =
    (fst (s_commandToken false endpoint0), 41, None).
Proof.
  refine (proj2 (proj2 (command_refused false (fun _ _ => WL_OK) 256 sample_velocity 5000 41 endpoint0)) _ _ _);
    [reflexivity|vm_compute; reflexivity|vm_compute; discriminate].
Defined.
