(* ===== verification/ControlGeneration.v ===== *)
(** * Control generations

    [include/florid/detail/ControlGeneration.hpp]: the gate between the threads
    that send control commands and the caller that ends a control session.  The
    atomics are sequentially consistent, so an execution is an interleaving of
    the atomic accesses.  Every access is one step; a thread is a program
    counter, and the functions below say what each does at its counter. *)

From stdpp Require Import relations.
From S2P Require Import Prelude.

(** ** Data *)

Record ControlGeneration := {
  m_generation : Z;  (* atomic u64 *)
  m_inflight : Z;    (* atomic unsigned *)
  m_draining : bool
}.
Definition generation0 : ControlGeneration :=
  {| m_generation := 1; m_inflight := 0; m_draining := false |}.

Definition set_inflight (n : Z) (c : ControlGeneration) : ControlGeneration :=
  {| m_generation := m_generation c; m_inflight := n; m_draining := m_draining c |}.
Definition set_draining (b : bool) (c : ControlGeneration) : ControlGeneration :=
  {| m_generation := m_generation c; m_inflight := m_inflight c; m_draining := b |}.

(** A thread in [send(g, f)].  [SendLeave] is the destructor of [s_leave];
    [expired] tells whether the exception is being thrown. *)
Inductive send_pc :=
| SendCheck (g : Z)
| SendEnter (g : Z)
| SendRecheck (g : Z)
| SendBody (g : Z)
| SendLeave (expired : bool)
| SendNotify (expired : bool)
| SendDone (expired : bool).

(** The caller of [invalidate]. *)
Inductive invalidate_pc :=
| InvIdle
| InvDrain
| InvAdvance
| InvLoad
| InvWait (count : Z)
| InvBlocked (count : Z)
| InvFinish.

#[global] Instance send_pc_eq_dec : EqDecision send_pc.
Proof. solve_decision. Defined.
#[global] Instance invalidate_pc_eq_dec : EqDecision invalidate_pc.
Proof. solve_decision. Defined.

(** ** Steps *)

(** One access of a sender: the new atomics, its next counter, and whether it
    calls [notify_all]. *)
Definition send_step (c : ControlGeneration) (pc : send_pc)
    : option (ControlGeneration * send_pc * bool) :=
  match pc with
  | SendCheck g =>
      Some (c, if negb (g =? m_generation c) then SendDone true else SendEnter g, false)
  | SendEnter g => Some (set_inflight (u32 (m_inflight c + 1)) c, SendRecheck g, false)
  | SendRecheck g =>
      Some (c, if negb (g =? m_generation c) then SendLeave true else SendBody g, false)
  | SendBody g => Some (c, SendLeave false, false)
  | SendLeave expired =>
      let old := m_inflight c in
      Some (set_inflight (u32 (old - 1)) c,
            if old =? 1 then SendNotify expired else SendDone expired, false)
  | SendNotify expired => Some (c, SendDone expired, m_draining c)
  | SendDone _ => None
  end.

(** One access of [invalidate].  [std::atomic::wait] compares before it blocks. *)
Definition invalidate_step (c : ControlGeneration) (pc : invalidate_pc)
    : option (ControlGeneration * invalidate_pc) :=
  match pc with
  | InvIdle | InvBlocked _ => None
  | InvDrain => Some (set_draining true c, InvAdvance)
  | InvAdvance =>
      Some ({| m_generation := u64 (m_generation c + 1); m_inflight := m_inflight c;
               m_draining := m_draining c |}, InvLoad)
  | InvLoad => Some (c, if m_inflight c =? 0 then InvFinish else InvWait (m_inflight c))
  | InvWait count => Some (c, if m_inflight c =? count then InvBlocked count else InvLoad)
  | InvFinish => Some (set_draining false c, InvIdle)
  end.

(** A blocked [wait] that is woken compares again. *)
Definition wake (pc : invalidate_pc) : invalidate_pc :=
  match pc with InvBlocked count => InvWait count | _ => pc end.

Record gate := {
  g_shared : ControlGeneration;
  g_senders : list send_pc;
  g_invalidate : invalidate_pc
}.
Definition gate0 (threads : nat) : gate :=
  {| g_shared := generation0; g_senders := repeat (SendDone false) threads;
     g_invalidate := InvIdle |}.

(** The threads run. *)
Inductive run_step : gate -> gate -> Prop :=
| run_send c ts iv i pc c' pc' notify :
    ts !! i = Some pc -> send_step c pc = Some (c', pc', notify) ->
    run_step {| g_shared := c; g_senders := ts; g_invalidate := iv |}
      {| g_shared := c'; g_senders := <[i:=pc']> ts;
         g_invalidate := if notify : bool then wake iv else iv |}
| run_invalidate c ts iv c' iv' :
    invalidate_step c iv = Some (c', iv') ->
    run_step {| g_shared := c; g_senders := ts; g_invalidate := iv |}
      {| g_shared := c'; g_senders := ts; g_invalidate := iv' |}.

(** They also make calls, with any generation, and [wait] may wake up without
    being notified. *)
Inductive gate_step : gate -> gate -> Prop :=
| gate_run s s' : run_step s s' -> gate_step s s'
| gate_send c ts iv i expired g :
    ts !! i = Some (SendDone expired) ->
    gate_step {| g_shared := c; g_senders := ts; g_invalidate := iv |}
      {| g_shared := c; g_senders := <[i:=SendCheck g]> ts; g_invalidate := iv |}
| gate_invalidate c ts :
    gate_step {| g_shared := c; g_senders := ts; g_invalidate := InvIdle |}
      {| g_shared := c; g_senders := ts; g_invalidate := InvDrain |}
| gate_spurious c ts iv :
    gate_step {| g_shared := c; g_senders := ts; g_invalidate := iv |}
      {| g_shared := c; g_senders := ts; g_invalidate := wake iv |}.

Definition gate_reachable (threads : nat) (s : gate) : Prop := steps gate_step (gate0 threads) s.

(** ** Invariant *)

(** A sender is counted from its [fetch_add] to its [fetch_sub]. *)
Definition inside (pc : send_pc) : Z :=
  match pc with SendRecheck _ | SendBody _ | SendLeave _ => 1 | _ => 0 end.

Fixpoint count_inside (ts : list send_pc) : Z :=
  match ts with [] => 0 | pc :: ts' => inside pc + count_inside ts' end.

Lemma inside_range pc : 0 <= inside pc <= 1.
Proof. destruct pc; cbn; lia. Qed.

Lemma count_inside_range ts : 0 <= count_inside ts <= Z.of_nat (length ts).
Proof.
  induction ts as [|pc ts IH]; cbn [count_inside length]; [lia|].
  pose proof (inside_range pc). lia.
Qed.

Lemma count_inside_insert ts i pc pc' :
  ts !! i = Some pc -> count_inside (<[i:=pc']> ts) = count_inside ts + inside pc' - inside pc.
Proof.
  revert i. induction ts as [|x ts IH]; intros [|i] Hi; try done.
  - cbn in Hi. injection Hi as ->. cbn [insert list_insert count_inside]. lia.
  - cbn in Hi. change (<[S i:=pc']> (x :: ts)) with (x :: <[i:=pc']> ts). cbn [count_inside].
    rewrite (IH i) by done. lia.
Qed.

Lemma count_inside_ge ts i pc : ts !! i = Some pc -> inside pc <= count_inside ts.
Proof.
  revert i. induction ts as [|x ts IH]; intros [|i] Hi; try done; cbn [count_inside].
  - injection Hi as ->. pose proof (count_inside_range ts). lia.
  - specialize (IH i Hi). pose proof (inside_range x). lia.
Qed.

Lemma count_inside_none ts i pc : count_inside ts = 0 -> ts !! i = Some pc -> inside pc = 0.
Proof.
  intros H0 Hi%count_inside_ge. pose proof (inside_range pc). lia.
Qed.

(** [invalidate] is past its [fetch_add] and has not yet seen the gate empty. *)
Definition waiting (pc : invalidate_pc) : bool :=
  match pc with InvLoad | InvWait _ | InvBlocked _ => true | _ => false end.

Definition drains (pc : invalidate_pc) : bool :=
  match pc with InvIdle | InvDrain => false | _ => true end.

Definition notifying (ts : list send_pc) : Prop := exists i e, ts !! i = Some (SendNotify e).

(** What [wait] was given, and why a blocked one will be woken. *)
Definition wait_ok (c : ControlGeneration) (ts : list send_pc) (pc : invalidate_pc) : Prop :=
  match pc with
  | InvWait n => n <> 0
  | InvBlocked n => n <> 0 /\ (m_inflight c <> 0 \/ notifying ts)
  | _ => True
  end.

Record gate_inv (s : gate) : Prop := {
  gi_threads : Z.of_nat (length (g_senders s)) < 2 ^ 32;
  gi_count : m_inflight (g_shared s) = count_inside (g_senders s);
  gi_body : waiting (g_invalidate s) = false ->
    forall i g, g_senders s !! i = Some (SendBody g) -> g = m_generation (g_shared s);
  gi_draining : m_draining (g_shared s) = drains (g_invalidate s);
  gi_wait : wait_ok (g_shared s) (g_senders s) (g_invalidate s)
}.

Lemma waiting_wake iv : waiting (wake iv) = waiting iv.
Proof. by destruct iv. Qed.
Lemma drains_wake iv : drains (wake iv) = drains iv.
Proof. by destruct iv. Qed.

Lemma wait_ok_wake c c' ts ts' iv : wait_ok c ts iv -> wait_ok c' ts' (wake iv).
Proof. by destruct iv; cbn; intros; destruct_and?. Qed.

Ltac frame_fields :=
  cbn; split_and!; try done; first [lia | by intros [? [=]] | by intros ? [= <-] | by left; lia
    | by right; left; lia | by right; right; eexists].

(** What one access of a sender does to the count and the generation. *)
Lemma send_step_frame c ts i pc c' pc' notify :
  Z.of_nat (length ts) < 2 ^ 32 -> m_inflight c = count_inside ts -> ts !! i = Some pc ->
  send_step c pc = Some (c', pc', notify) ->
  m_inflight c' = m_inflight c + inside pc' - inside pc /\
  m_generation c' = m_generation c /\ m_draining c' = m_draining c /\
  (forall g, pc' = SendBody g -> g = m_generation c) /\
  (m_inflight c' <> 0 \/ m_inflight c = 0 \/ exists e, pc' = SendNotify e) /\
  ((exists e, pc = SendNotify e) -> notify = m_draining c).
Proof.
  intros Hlen Hcount Hi Hs. pose proof (count_inside_range ts) as Hr.
  pose proof (count_inside_ge _ _ _ Hi) as Hin.
  destruct pc as [g|g|g|g|e|e|e]; cbn in Hs, Hin; [..|done].
  - destruct (Z.eqb_spec g (m_generation c)); injection Hs as <- <- <-; frame_fields.
  - injection Hs as <- <- <-.
    pose proof (count_inside_insert ts i _ (SendLeave true) Hi) as Hc.
    pose proof (count_inside_range (<[i:=SendLeave true]> ts)) as Hr'.
    rewrite length_insert in Hr'. cbn in Hc |- *. rewrite (wrap_id 32) by (unfold in_u; lia).
    frame_fields.
  - destruct (Z.eqb_spec g (m_generation c)); injection Hs as <- <- <-; frame_fields.
  - injection Hs as <- <- <-. frame_fields.
  - injection Hs as <- <- <-. cbn. rewrite (wrap_id 32) by (unfold in_u; lia).
    destruct (Z.eqb_spec (m_inflight c) 1); frame_fields.
  - injection Hs as <- <- <-. frame_fields.
Qed.

Lemma send_step_inv c ts iv i pc c' pc' notify :
  gate_inv {| g_shared := c; g_senders := ts; g_invalidate := iv |} ->
  ts !! i = Some pc -> send_step c pc = Some (c', pc', notify) ->
  gate_inv {| g_shared := c'; g_senders := <[i:=pc']> ts;
    g_invalidate := if notify then wake iv else iv |}.
Proof.
  intros [Hlen Hcount Hbody Hdrain Hwait] Hi Hs. cbn [g_shared g_senders g_invalidate] in *.
  destruct (send_step_frame c ts i pc c' pc' notify Hlen Hcount Hi Hs)
    as (Hin & Hgen & Hdr & Hb & Hz & Hn).
  assert (i < length ts)%nat as Hlt by by eapply lookup_lt_Some.
  constructor; cbn [g_shared g_senders g_invalidate].
  - by rewrite length_insert.
  - rewrite (count_inside_insert _ _ _ _ Hi). lia.
  - replace (waiting (if notify then wake iv else iv)) with (waiting iv)
      by (destruct notify; by rewrite ?waiting_wake).
    intros Hw j g Hj. rewrite Hgen. destruct (decide (i = j)) as [->|Hne].
    + rewrite list_lookup_insert_eq in Hj by done. injection Hj as ->. by apply Hb.
    + rewrite list_lookup_insert_ne in Hj by done. by eapply Hbody.
  - rewrite Hdr, Hdrain. destruct notify; by rewrite ?drains_wake.
  - destruct notify; [by eapply wait_ok_wake|].
    destruct iv; cbn in *; try done. destruct Hwait as [Hnz Hwait]. split; [done|].
    destruct Hwait as [Hwait|(j & e & Hj)].
    + destruct Hz as [?|[?|[e ->]]]; [by left|done|]. right. exists i, e.
      by apply list_lookup_insert_eq.
    + destruct (decide (i = j)) as [->|Hne].
      * rewrite Hi in Hj. injection Hj as ->. specialize (Hn (ex_intro _ e eq_refl)). congruence.
      * right. exists j, e. by rewrite list_lookup_insert_ne.
Qed.

Lemma invalidate_step_inv c ts iv c' iv' :
  gate_inv {| g_shared := c; g_senders := ts; g_invalidate := iv |} ->
  invalidate_step c iv = Some (c', iv') ->
  gate_inv {| g_shared := c'; g_senders := ts; g_invalidate := iv' |}.
Proof.
  intros [Hlen Hcount Hbody Hdrain Hwait] Hs. cbn [g_shared g_senders g_invalidate] in *.
  destruct iv; cbn in Hs; try discriminate Hs.
  - injection Hs as <- <-. by constructor.
  - injection Hs as <- <-. by constructor.
  - destruct (Z.eqb_spec (m_inflight c) 0) as [H0|H0]; injection Hs as <- <-; constructor; try done.
    cbn. intros _ i g Hi. exfalso. rewrite Hcount in H0.
    by specialize (count_inside_none _ _ _ H0 Hi).
  - destruct (Z.eqb_spec (m_inflight c) count) as [H0|H0]; injection Hs as <- <-;
      constructor; try done. cbn in *. split; [done|]. left. congruence.
  - injection Hs as <- <-. by constructor.
Qed.

Lemma run_step_inv s s' : gate_inv s -> run_step s s' -> gate_inv s'.
Proof. intros H Hs. destruct Hs; [eapply send_step_inv|eapply invalidate_step_inv]; eassumption. Qed.

Lemma gate_step_inv s s' : gate_inv s -> gate_step s s' -> gate_inv s'.
Proof.
  intros Hinv Hs. destruct Hs as [s s' Hr|c ts iv i expired g Hi|c ts|c ts iv];
    [by eapply run_step_inv|..]; destruct Hinv as [Hlen Hcount Hbody Hdrain Hwait];
    cbn [g_shared g_senders g_invalidate] in *.
  - constructor; cbn [g_shared g_senders g_invalidate]; try done.
    + by rewrite length_insert.
    + rewrite (count_inside_insert _ _ _ _ Hi). cbn. lia.
    + intros Hw j h Hj. destruct (decide (i = j)) as [->|Hne].
      * rewrite list_lookup_insert_eq in Hj by (by eapply lookup_lt_Some). done.
      * rewrite list_lookup_insert_ne in Hj by done. by eapply Hbody.
    + destruct iv; cbn in *; try done. destruct Hwait as [Hnz Hwait]. split; [done|].
      destruct Hwait as [?|(j & e & Hj)]; [by left|right]. exists j, e.
      rewrite list_lookup_insert_ne; [done|]. congruence.
  - by constructor.
  - constructor; cbn [g_shared g_senders g_invalidate]; try done.
    + by rewrite waiting_wake.
    + by rewrite drains_wake.
    + by eapply wait_ok_wake.
Qed.

Lemma gate0_inv n : Z.of_nat n < 2 ^ 32 -> gate_inv (gate0 n).
Proof.
  intros Hn. constructor; cbn [gate0 g_shared g_senders g_invalidate]; try done.
  - by rewrite repeat_length.
  - clear Hn. by induction n as [|n IH]; cbn in *.
  - intros _ i g Hi%list_elem_of_lookup_2. apply list_elem_of_In in Hi.
    by apply repeat_spec in Hi.
Qed.

Lemma gate_reachable_inv n s : Z.of_nat n < 2 ^ 32 -> gate_reachable n s -> gate_inv s.
Proof.
  intros Hn Hs. eapply (steps_invariant gate_step gate_inv); [|exact Hs|by apply gate0_inv].
  intros ??. apply gate_step_inv.
Qed.

(** ** Termination *)

(** The accesses a sender has left, and those of [invalidate] while the count
    does not change. *)
Definition send_left (pc : send_pc) : nat :=
  match pc with
  | SendCheck _ => 6
  | SendEnter _ => 5
  | SendRecheck _ => 4
  | SendBody _ => 3
  | SendLeave _ => 2
  | SendNotify _ => 1
  | SendDone _ => 0
  end.

Definition invalidate_left (inflight : Z) (pc : invalidate_pc) : nat :=
  match pc with
  | InvDrain => 6
  | InvAdvance => 5
  | InvWait n => if inflight =? n then 2 else 5
  | InvLoad => 4
  | InvBlocked _ | InvFinish => 1
  | InvIdle => 0
  end.

Definition gate_left (s : gate) : nat :=
  sum_list_with send_left (g_senders s) * 6 +
  invalidate_left (m_inflight (g_shared s)) (g_invalidate s).

Lemma sum_left_insert ts i pc pc' :
  ts !! i = Some pc ->
  (sum_list_with send_left (<[i:=pc']> ts) + send_left pc =
   sum_list_with send_left ts + send_left pc')%nat.
Proof.
  revert i. induction ts as [|x ts IH]; intros [|i] Hi; try done; cbn in Hi.
  - injection Hi as ->. cbn [insert list_insert sum_list_with]. lia.
  - specialize (IH i Hi). change (<[S i:=pc']> (x :: ts)) with (x :: <[i:=pc']> ts).
    cbn [sum_list_with]. lia.
Qed.

Lemma send_step_left c pc c' pc' notify :
  send_step c pc = Some (c', pc', notify) -> (send_left pc' < send_left pc)%nat.
Proof.
  destruct pc; cbn; try done; [destruct (negb _)| |destruct (negb _)| |destruct (_ =? _)|];
    intros [= <- <- <-]; cbn; lia.
Qed.

Lemma invalidate_left_le inflight pc : (invalidate_left inflight pc <= 6)%nat.
Proof. destruct pc; cbn; try lia. destruct (_ =? _); lia. Qed.

Lemma invalidate_step_left c pc c' pc' :
  invalidate_step c pc = Some (c', pc') ->
  (invalidate_left (m_inflight c') pc' < invalidate_left (m_inflight c) pc)%nat.
Proof.
  destruct pc; cbn; try done; try (intros [= <- <-]; cbn; lia).
  - destruct (Z.eqb_spec (m_inflight c) 0); intros [= <- <-]; cbn; [lia|].
    rewrite Z.eqb_refl. lia.
  - destruct (_ =? _); intros [= <- <-]; cbn; lia.
Qed.

Lemma run_step_left s s' : run_step s s' -> (gate_left s' < gate_left s)%nat.
Proof.
  intros [c ts iv i pc c' pc' notify Hi Hs|c ts iv c' iv' Hs]; unfold gate_left; cbn.
  - apply send_step_left in Hs. pose proof (sum_left_insert ts i pc pc' Hi) as Hsum.
    pose proof (invalidate_left_le (m_inflight c') (if notify then wake iv else iv)) as Hle.
    destruct (decide (invalidate_left (m_inflight c) iv = 0)%nat) as [H0|H0]; [|lia].
    destruct iv; cbn in H0; try (destruct (_ =? _)); try done.
    destruct notify; cbn; lia.
  - apply invalidate_step_left in Hs. lia.
Qed.

Lemma run_bounded k s s' : nsteps run_step k s s' -> (k + gate_left s' <= gate_left s)%nat.
Proof.
  induction 1 as [|k s1 s2 s3 Hs _ IH]; [lia|]. apply run_step_left in Hs. lia.
Qed.

Lemma stuck_done s :
  gate_inv s -> (forall s', ~ run_step s s') ->
  g_invalidate s = InvIdle /\ Forall (fun pc => exists e, pc = SendDone e) (g_senders s).
Proof.
  intros [Hlen Hcount Hbody Hdrain Hwait] Hstuck. destruct s as [c ts iv]. cbn in *.
  assert (Forall (fun pc => exists e, pc = SendDone e) ts) as Hd.
  { apply Forall_lookup. intros i pc Hi. destruct (send_step c pc) as [[[c' pc'] nt]|] eqn:Hs.
    - exfalso. eapply Hstuck. eapply run_send; eassumption.
    - destruct pc; try discriminate Hs. by eexists. }
  split; [|done]. destruct (invalidate_step c iv) as [[c' iv']|] eqn:Hs.
  - exfalso. eapply Hstuck. eapply run_invalidate; eassumption.
  - destruct iv as [| | | | |n|]; try discriminate Hs; [done|]. exfalso.
    rewrite Forall_lookup in Hd. destruct Hwait as [_ [Hne|(i & e & Hi)]].
    + apply Hne. rewrite Hcount. clear -Hd. induction ts as [|pc ts IH]; [done|].
      cbn [count_inside]. rewrite IH by (intros i x Hi; by apply (Hd (S i))).
      destruct (Hd O pc eq_refl) as [e ->]. done.
    + destruct (Hd _ _ Hi) as [e' He]. discriminate He.
Qed.

(** ** Theorems *)

(** C5: Ending a control session waits for the commands that are being sent.
    In every reachable state in which no caller is between the [fetch_add] of
    [invalidate] and its return from the loop, a thread runs the submission it
    passed to [send] only with the current generation; so once [invalidate]
    has returned, no command of an earlier generation is or will be submitted.
    The counter never wraps: it is the number of threads between their
    [fetch_add] and their [fetch_sub]. *)
Theorem invalidate_excludes threads s :
  Z.of_nat threads < 2 ^ 32 -> gate_reachable threads s ->
  m_inflight (g_shared s) = count_inside (g_senders s) /\
  m_draining (g_shared s) = drains (g_invalidate s) /\
  (waiting (g_invalidate s) = false ->
   forall i g, g_senders s !! i = Some (SendBody g) -> g = m_generation (g_shared s)).
Proof.
  intros Ht Hs. destruct (gate_reachable_inv threads s Ht Hs). by split_and!.
Qed.

(** C39: No caller of [invalidate] or [send] waits for ever.  From a reachable
    state, a run of the threads without new calls has at most [gate_left]
    accesses, however they interleave, and it can stop only where [invalidate]
    and every [send] have returned: no wake-up of a blocked [wait] is lost. *)
Theorem invalidate_returns threads s k s' :
  Z.of_nat threads < 2 ^ 32 -> gate_reachable threads s -> nsteps run_step k s s' ->
  (k <= gate_left s)%nat /\
  ((forall s'', ~ run_step s' s'') ->
   g_invalidate s' = InvIdle /\ Forall (fun pc => exists e, pc = SendDone e) (g_senders s')).
Proof.
  intros Ht Hs Hk. split; [apply run_bounded in Hk; lia|].
  apply stuck_done. apply (gate_reachable_inv threads s Ht) in Hs.
  clear -Hs Hk. induction Hk as [|k s1 s2 s3 Hr _ IH]; [done|]. apply IH.
  by eapply run_step_inv.
Qed.

(** *** A run: a sender in its body, [invalidate] blocked on it, woken by it *)

(** Thread [Some i] or the caller of [invalidate] makes its next access. *)
Definition run_thread (who : option nat) (s : gate) : option gate :=
  match who with
  | Some i =>
      match pc ← g_senders s !! i; send_step (g_shared s) pc with
      | Some (c', pc', notify) =>
          Some {| g_shared := c'; g_senders := <[i:=pc']> (g_senders s);
                  g_invalidate := if notify : bool then wake (g_invalidate s) else g_invalidate s |}
      | None => None
      end
  | None =>
      match invalidate_step (g_shared s) (g_invalidate s) with
      | Some (c', iv') =>
          Some {| g_shared := c'; g_senders := g_senders s; g_invalidate := iv' |}
      | None => None
      end
  end.

Fixpoint run_threads (whos : list (option nat)) (s : gate) : option gate :=
  match whos with
  | [] => Some s
  | who :: whos' => s' ← run_thread who s; run_threads whos' s'
  end.

Lemma run_thread_step who s s' : run_thread who s = Some s' -> run_step s s'.
Proof.
  destruct s as [c ts iv], who as [i|]; cbn.
  - destruct (ts !! i) as [pc|] eqn:Hi; cbn; [|done].
    destruct (send_step c pc) as [[[c' pc'] nt]|] eqn:Hs; cbn; [|done]. intros [= <-].
    by eapply run_send.
  - destruct (invalidate_step c iv) as [[c' iv']|] eqn:Hs; cbn; [|done]. intros [= <-].
    by eapply run_invalidate.
Qed.

Lemma run_threads_nsteps whos s s' :
  run_threads whos s = Some s' -> nsteps run_step (length whos) s s'.
Proof.
  revert s. induction whos as [|w ws IH]; intros s; cbn; [by intros [= <-]; constructor|].
  destruct (run_thread w s) as [s1|] eqn:H1; cbn; [|done]. intros H. econstructor; [|by apply IH].
  by eapply run_thread_step.
Qed.

Lemma run_threads_steps whos s s' : run_threads whos s = Some s' -> steps gate_step s s'.
Proof.
  revert s. induction whos as [|w ws IH]; intros s; cbn; [by intros [= <-]; constructor|].
  destruct (run_thread w s) as [s1|] eqn:H1; cbn; [|done]. intros H.
  eapply steps_cons; [|by apply IH]. apply gate_run. by eapply run_thread_step.
Qed.

(** Two threads; the first calls [send] with the current generation. *)
Definition gate_called : gate :=
  {| g_shared := generation0; g_senders := [SendCheck 1; SendDone false]; g_invalidate := InvDrain |}.

Definition gate_sending : gate :=
  default gate_called (run_threads [Some 0; Some 0; Some 0]%nat gate_called).
Definition gate_blocked : gate :=
  default gate_called (run_threads [None; None; None; None] gate_sending).
Definition gate_returned : gate :=
  default gate_called (run_threads
    [Some 0; Some 0; Some 0; None; None; None]%nat gate_blocked).

Lemma gate_called_reachable : gate_reachable 2 gate_called.
Proof.
  eapply steps_cons; [by apply (gate_send _ _ _ 0 false 1)|].
  eapply steps_cons; [apply gate_invalidate|]. constructor.
Qed.

Lemma gate_sending_reachable : gate_reachable 2 gate_sending.
Proof.
  eapply steps_trans; [apply gate_called_reachable|].
  apply (run_threads_steps [Some 0; Some 0; Some 0]%nat). by vm_compute.
Qed.

Lemma gate_blocked_reachable : gate_reachable 2 gate_blocked.
Proof.
  eapply steps_trans; [apply gate_sending_reachable|].
  apply (run_threads_steps [None; None; None; None]). by vm_compute.
Qed.

Example gate_runs :
  g_senders gate_sending !! 0%nat = Some (SendBody 1) /\
  g_invalidate gate_blocked = InvBlocked 1 /\
  g_invalidate gate_returned = InvIdle /\ m_generation (g_shared gate_returned) = 2.
Proof. by vm_compute. Qed.

Lemma invalidate_excludes_witness :
  waiting (g_invalidate gate_sending) = false /\
  g_senders gate_sending !! 0%nat = Some (SendBody 1) /\
  1 = m_generation (g_shared gate_sending).
Proof.
  split; [by vm_compute|split; [by vm_compute|]].
  apply (proj2 (proj2 (invalidate_excludes 2 gate_sending ltac:(lia) gate_sending_reachable))) with 0%nat;
    by vm_compute.
Defined.

Lemma invalidate_returns_witness :
  (6 <= gate_left gate_blocked)%nat /\
  ((forall s'', ~ run_step gate_returned s'') ->
   g_invalidate gate_returned = InvIdle /\
   Forall (fun pc => exists e, pc = SendDone e) (g_senders gate_returned)).
Proof.
  apply (invalidate_returns 2 gate_blocked 6 gate_returned); [lia|apply gate_blocked_reachable|].
  apply (run_threads_nsteps [Some 0; Some 0; Some 0; None; None; None]%nat). by vm_compute.
Defined.
