(* ===== verification/ReceiveCallbackGate.v ===== *)
(** * The gate in front of a transport's receive callback

    [include/florid/detail/ReceiveCallbackGate.hpp]: the receive thread invokes
    the callback without a lock, while [set] replaces it.  As in
    [ControlGeneration.v], every access of the atomic word is a step, and so is
    every access of the plain members [m_callback] and [m_context], which the
    gate must protect.  [m_update_mutex] lets one caller into [set] at a time:
    there is one setter, who makes any sequence of calls. *)

From stdpp Require Import relations.
From S2P Require Import Prelude.

(** ** Data *)

Definition s_kClosed : Z := 2 ^ 31.
Definition s_kCountMask : Z := u32 (Z.lnot s_kClosed).

(** A function pointer is [None] or the identity of a function; the context is
    an address. *)
Record ReceiveCallbackGate := {
  m_state : Z;  (* atomic u32 *)
  m_callback : option Z;
  m_context : Z
}.
Definition callback_gate0 : ReceiveCallbackGate :=
  {| m_state := s_kClosed; m_callback := None; m_context := 0 |}.

Definition with_word (w : Z) (g : ReceiveCallbackGate) : ReceiveCallbackGate :=
  {| m_state := w; m_callback := m_callback g; m_context := m_context g |}.
Definition with_callback (cb : option Z) (g : ReceiveCallbackGate) : ReceiveCallbackGate :=
  {| m_state := m_state g; m_callback := cb; m_context := m_context g |}.
Definition with_context (ctx : Z) (g : ReceiveCallbackGate) : ReceiveCallbackGate :=
  {| m_state := m_state g; m_callback := m_callback g; m_context := ctx |}.

Definition word_closed (w : Z) : bool := negb (Z.land w s_kClosed =? 0).
Definition word_count (w : Z) : Z := Z.land w s_kCountMask.

(** A thread in [invoke]. [InvokeTry w] is the loop of [s_tryEnter] with the
    word it has seen; [InvokeRun cb ctx] is inside the callback. *)
Inductive invoke_pc :=
| InvokeLoad
| InvokeTry (w : Z)
| InvokeCall
| InvokeRun (cb : option Z) (ctx : Z)
| InvokeLeave
| InvokeNotify
| InvokeDone (called : bool).

(** The caller of [set(cb, ctx)]. *)
Inductive set_pc :=
| SetIdle
| SetClose (cb : option Z) (ctx : Z)
| SetWait (w : Z) (cb : option Z) (ctx : Z)
| SetBlocked (w : Z) (cb : option Z) (ctx : Z)
| SetLoad (cb : option Z) (ctx : Z)
| SetCallback (cb : option Z) (ctx : Z)
| SetContext (cb : option Z) (ctx : Z)
| SetOpen (cb : option Z).

(** ** Steps *)

(** The head of the loop of [s_tryEnter]. *)
Definition try_enter (w : Z) : invoke_pc :=
  if word_closed w || (word_count w =? s_kCountMask) then InvokeDone false else InvokeTry w.

(** [compare_exchange_weak] may fail without a reason ([weak]).  The last
    component tells whether the step calls [notify_all]. *)
Definition invoke_step (weak : bool) (g : ReceiveCallbackGate) (pc : invoke_pc)
    : option (ReceiveCallbackGate * invoke_pc * bool) :=
  match pc with
  | InvokeLoad => Some (g, try_enter (m_state g), false)
  | InvokeTry w =>
      if (m_state g =? w) && negb weak
      then Some (with_word (u32 (w + 1)) g, InvokeCall, false)
      else Some (g, try_enter (m_state g), false)
  | InvokeCall => Some (g, InvokeRun (m_callback g) (m_context g), false)
  | InvokeRun _ _ => Some (g, InvokeLeave, false)
  | InvokeLeave =>
      let previous := m_state g in
      Some (with_word (u32 (previous - 1)) g,
            if word_closed previous && (word_count previous =? 1) then InvokeNotify else InvokeDone true,
            false)
  | InvokeNotify => Some (g, InvokeDone true, true)
  | InvokeDone _ => None
  end.

(** The loop of [s_closeAndWait] with the word it has seen. *)
Definition closed_with (w : Z) (cb : option Z) (ctx : Z) : set_pc :=
  if negb (word_count w =? 0) then SetWait w cb ctx else SetCallback cb ctx.

Definition set_step (g : ReceiveCallbackGate) (pc : set_pc) : option (ReceiveCallbackGate * set_pc) :=
  match pc with
  | SetIdle | SetBlocked _ _ _ => None
  | SetClose cb ctx =>
      let w := Z.lor (m_state g) s_kClosed in Some (with_word w g, closed_with w cb ctx)
  | SetWait w cb ctx => Some (g, if m_state g =? w then SetBlocked w cb ctx else SetLoad cb ctx)
  | SetLoad cb ctx => Some (g, closed_with (m_state g) cb ctx)
  | SetCallback cb ctx => Some (with_callback cb g, SetContext cb ctx)
  | SetContext cb ctx => Some (with_context (if cb is Some _ then ctx else 0) g, SetOpen cb)
  | SetOpen cb => Some (if cb is Some _ then with_word 0 g else g, SetIdle)
  end.

(** A blocked [wait] that is woken compares again. *)
Definition set_wake (pc : set_pc) : set_pc :=
  match pc with SetBlocked w cb ctx => SetWait w cb ctx | _ => pc end.

Record callback_gate := {
  cg_gate : ReceiveCallbackGate;
  cg_threads : list invoke_pc;
  cg_setter : set_pc
}.
Definition callback_system0 (threads : nat) : callback_gate :=
  {| cg_gate := callback_gate0; cg_threads := repeat (InvokeDone false) threads; cg_setter := SetIdle |}.

(** The threads run; a compare-exchange fails only for a reason. *)
Inductive callback_run : callback_gate -> callback_gate -> Prop :=
| callback_run_invoke g ts st i pc g' pc' notify :
    ts !! i = Some pc -> invoke_step false g pc = Some (g', pc', notify) ->
    callback_run {| cg_gate := g; cg_threads := ts; cg_setter := st |}
      {| cg_gate := g'; cg_threads := <[i:=pc']> ts;
         cg_setter := if notify : bool then set_wake st else st |}
| callback_run_set g ts st g' st' :
    set_step g st = Some (g', st') ->
    callback_run {| cg_gate := g; cg_threads := ts; cg_setter := st |}
      {| cg_gate := g'; cg_threads := ts; cg_setter := st' |}.

(** They also make calls; and [compare_exchange_weak] and [wait] may fail and
    wake up without a reason. *)
Inductive callback_step : callback_gate -> callback_gate -> Prop :=
| callback_step_run s s' : callback_run s s' -> callback_step s s'
| callback_step_weak g ts st i pc g' pc' notify :
    ts !! i = Some pc -> invoke_step true g pc = Some (g', pc', notify) -> notify = false ->
    callback_step {| cg_gate := g; cg_threads := ts; cg_setter := st |}
      {| cg_gate := g'; cg_threads := <[i:=pc']> ts; cg_setter := st |}
| callback_step_invoke g ts st i called :
    ts !! i = Some (InvokeDone called) ->
    callback_step {| cg_gate := g; cg_threads := ts; cg_setter := st |}
      {| cg_gate := g; cg_threads := <[i:=InvokeLoad]> ts; cg_setter := st |}
| callback_step_set g ts cb ctx :
    callback_step {| cg_gate := g; cg_threads := ts; cg_setter := SetIdle |}
      {| cg_gate := g; cg_threads := ts; cg_setter := SetClose cb ctx |}
| callback_step_spurious g ts st :
    callback_step {| cg_gate := g; cg_threads := ts; cg_setter := st |}
      {| cg_gate := g; cg_threads := ts; cg_setter := set_wake st |}.

Definition callback_reachable (threads : nat) (s : callback_gate) : Prop :=
  steps callback_step (callback_system0 threads) s.

(** ** The word *)

(** A word: the closed bit and a count. *)
Definition word (closed : bool) (n : Z) : Z := (if closed then 2 ^ 31 else 0) + n.

Lemma word_land_closed b n : 0 <= n < 2 ^ 31 -> Z.land (word b n) s_kClosed = if b then 2 ^ 31 else 0.
Proof.
  intros Hn. unfold s_kClosed. apply Z.bits_inj'. intros k Hk. rewrite Z.land_spec, Z.pow2_bits_eqb by lia.
  assert (Z.testbit (word b n) 31 = b) as Hb.
  { unfold word. rewrite Z.testbit_odd, Z.shiftr_div_pow2 by lia. destruct b.
    - replace (2 ^ 31 + n) with (n + 1 * 2 ^ 31) by lia. rewrite Z.div_add by lia.
      rewrite Z.div_small by lia. done.
    - rewrite Z.add_0_l, Z.div_small by lia. done. }
  destruct (Z.eqb_spec 31 k) as [<-|Hne].
  - rewrite Hb, andb_true_r. destruct b; [|by rewrite Z.bits_0]. by rewrite Z.pow2_bits_true by lia.
  - rewrite andb_false_r. destruct b; [|by rewrite Z.bits_0]. symmetry. by rewrite Z.pow2_bits_false by lia.
Qed.

Lemma word_closed_word b n : 0 <= n < 2 ^ 31 -> word_closed (word b n) = b.
Proof. intros Hn. unfold word_closed. rewrite word_land_closed by done. by destruct b. Qed.

Lemma word_count_word b n : 0 <= n < 2 ^ 31 -> word_count (word b n) = n.
Proof.
  intros Hn. unfold word_count. change s_kCountMask with (Z.ones 31). rewrite Z.land_ones by lia.
  unfold word. destruct b.
  - replace (2 ^ 31 + n) with (n + 1 * 2 ^ 31) by lia. rewrite Z.mod_add by lia. by apply Z.mod_small.
  - by apply Z.mod_small.
Qed.

Lemma word_close b n : 0 <= n < 2 ^ 31 -> Z.lor (word b n) s_kClosed = word true n.
Proof.
  intros Hn. destruct b.
  - apply Z.bits_inj'. intros k Hk. rewrite Z.lor_spec.
    destruct (Z.testbit s_kClosed k) eqn:Hb; [|by rewrite orb_false_r]. rewrite orb_true_r. symmetry.
    pose proof (word_land_closed true n Hn) as H. apply (f_equal (fun z => Z.testbit z k)) in H.
    rewrite Z.land_spec, Hb, andb_true_r in H. rewrite H. exact Hb.
  - pose proof (Z.add_lor_land (word false n) s_kClosed) as H.
    rewrite word_land_closed in H by done. unfold word, s_kClosed in *. lia.
Qed.

(** ** Invariant *)

(** An invocation is counted from its compare-exchange to its [fetch_sub]. *)
Definition invoking (pc : invoke_pc) : Z :=
  match pc with InvokeCall | InvokeRun _ _ | InvokeLeave => 1 | _ => 0 end.

Fixpoint invoking_count (ts : list invoke_pc) : Z :=
  match ts with [] => 0 | pc :: ts' => invoking pc + invoking_count ts' end.

Lemma invoking_insert ts i pc pc' :
  ts !! i = Some pc -> invoking_count (<[i:=pc']> ts) = invoking_count ts - invoking pc + invoking pc'.
Proof.
  revert i. induction ts as [|x ts IH]; intros [|i] Hi; try done.
  - injection Hi as ->. cbn. lia.
  - change (<[S i:=pc']> (x :: ts)) with (x :: <[i:=pc']> ts). cbn [invoking_count].
    rewrite (IH i) by done. lia.
Qed.

Lemma invoking_nonneg ts : 0 <= invoking_count ts.
Proof. induction ts as [|[] ts IH]; cbn; lia. Qed.

Lemma invoking_ge ts i pc : ts !! i = Some pc -> invoking pc <= invoking_count ts.
Proof.
  revert i. induction ts as [|x ts IH]; intros [|i]; try done; cbn [invoking_count].
  - intros [= ->]. pose proof (invoking_nonneg ts). lia.
  - intros Hi. specialize (IH i Hi). destruct x; cbn; lia.
Qed.

(** The closed bit: set during [set], and while there is no callback. *)
Definition closes (st : set_pc) (cb : option Z) : bool :=
  match st with SetIdle | SetClose _ _ => negb (bool_decide (is_Some cb)) | _ => true end.

(** The setter has seen the gate empty and may write. *)
Definition writing (st : set_pc) : bool :=
  match st with SetCallback _ _ | SetContext _ _ | SetOpen _ => true | _ => false end.

(** What the setter has written. *)
Definition written (g : ReceiveCallbackGate) (st : set_pc) : Prop :=
  match st with SetContext cb _ | SetOpen cb => m_callback g = cb | _ => True end.

Definition leaving (ts : list invoke_pc) : Prop := exists i, ts !! i = Some InvokeNotify.

Definition set_wait_ok (n : Z) (ts : list invoke_pc) (st : set_pc) : Prop :=
  match st with
  | SetWait w _ _ => word_count w <> 0
  | SetBlocked w _ _ => word_count w <> 0 /\ (n <> 0 \/ leaving ts)
  | _ => True
  end.

(** What a thread knows: the word it tries was open; a running callback is the
    installed one. *)
Definition invoke_ok (g : ReceiveCallbackGate) (pc : invoke_pc) : Prop :=
  match pc with
  | InvokeTry w => word_closed w = false /\ word_count w <> s_kCountMask
  | InvokeRun cb ctx => cb = m_callback g /\ ctx = m_context g
  | _ => True
  end.

Record callback_inv (s : callback_gate) : Prop := {
  ci_word : m_state (cg_gate s) =
    word (closes (cg_setter s) (m_callback (cg_gate s))) (invoking_count (cg_threads s));
  ci_range : invoking_count (cg_threads s) < 2 ^ 31;
  ci_some : invoking_count (cg_threads s) <> 0 -> is_Some (m_callback (cg_gate s));
  ci_writing : writing (cg_setter s) = true -> invoking_count (cg_threads s) = 0;
  ci_written : written (cg_gate s) (cg_setter s);
  ci_wait : set_wait_ok (invoking_count (cg_threads s)) (cg_threads s) (cg_setter s);
  ci_threads : forall i pc, cg_threads s !! i = Some pc -> invoke_ok (cg_gate s) pc
}.

Lemma closes_wake st cb : closes (set_wake st) cb = closes st cb.
Proof. by destruct st. Qed.
Lemma writing_wake st : writing (set_wake st) = writing st.
Proof. by destruct st. Qed.
Lemma written_wake g st : written g (set_wake st) = written g st.
Proof. by destruct st. Qed.
Lemma set_wait_wake n ts n' ts' st : set_wait_ok n ts st -> set_wait_ok n' ts' (set_wake st).
Proof. destruct st; cbn; intros; by destruct_and?. Qed.

Lemma try_enter_ok g w : invoke_ok g (try_enter w) /\ invoking (try_enter w) = 0.
Proof.
  unfold try_enter. destruct (word_closed w) eqn:Hc; cbn [orb]; [done|].
  destruct (Z.eqb_spec (word_count w) s_kCountMask); done.
Qed.

(** A step of a thread that changes at most the word. *)
Lemma thread_update g ts st i pc pc' w (notify : bool) :
  let s := {| cg_gate := g; cg_threads := ts; cg_setter := st |} in
  callback_inv s -> ts !! i = Some pc ->
  w = word (closes st (m_callback g)) (invoking_count ts - invoking pc + invoking pc') ->
  invoking_count ts - invoking pc + invoking pc' < 2 ^ 31 ->
  (invoking pc' <> 0 -> is_Some (m_callback g) /\ writing st = false) ->
  (notify = false -> pc <> InvokeNotify) ->
  (pc' = InvokeNotify \/ invoking_count ts - invoking pc + invoking pc' <> 0 \/ invoking_count ts = 0 \/
    forall v cb ctx, st <> SetBlocked v cb ctx) ->
  invoke_ok g pc' ->
  callback_inv {| cg_gate := with_word w g; cg_threads := <[i:=pc']> ts;
    cg_setter := if notify then set_wake st else st |}.
Proof.
  intros s [Hw Hr Hs Hwr Hwn Hwt Hth] Hi -> Hlt Hin Hn Hz Hok. cbn [s cg_gate cg_threads cg_setter] in *.
  pose proof (invoking_insert _ _ _ pc' Hi) as Hc. pose proof (invoking_ge _ _ _ Hi) as Hge.
  assert (i < length ts)%nat as Hl by by eapply lookup_lt_Some.
  constructor; cbn [cg_gate cg_threads cg_setter with_word m_state m_callback m_context].
  - rewrite Hc. destruct notify; by rewrite ?closes_wake.
  - by rewrite Hc.
  - rewrite Hc. intros Hne. destruct (decide (invoking pc' = 0)) as [H0|H0]; [|by apply Hin].
    apply Hs. destruct pc; cbn in Hge, Hne; lia.
  - intros Hwr'. assert (writing st = true) as Hwr2 by (destruct notify; by rewrite ?writing_wake in Hwr').
    rewrite Hc. specialize (Hwr Hwr2). destruct (decide (invoking pc' = 0)) as [->|H0].
    + destruct pc; cbn in Hge |- *; lia.
    + destruct (Hin H0) as [_ Hf]. congruence.
  - destruct notify; [rewrite written_wake|]; destruct st; done.
  - destruct notify; [by eapply set_wait_wake|]. destruct st as [| |v cb ctx|v cb ctx| | | |]; try done.
    cbn in *. destruct Hwt as [Hv Hwt]. split; [done|]. rewrite Hc.
    destruct Hz as [->|[Hz|[Hz|Hz]]].
    + right. exists i. by apply list_lookup_insert_eq.
    + by left.
    + right. destruct Hwt as [?|(j & Hj)]; [done|]. exists j. rewrite list_lookup_insert_ne; [done|].
      intros ->. apply Hn; [done|]. congruence.
    + by destruct (Hz v cb ctx).
  - intros j pc2 Hj. destruct (decide (i = j)) as [<-|Hne].
    + rewrite list_lookup_insert_eq in Hj by done. injection Hj as <-. by destruct pc'.
    + rewrite list_lookup_insert_ne in Hj by done. specialize (Hth _ _ Hj). by destruct pc2.
Qed.

Lemma with_word_id g : with_word (m_state g) g = g.
Proof. by destruct g. Qed.

Lemma closes_open st cb : closes st cb = false -> is_Some cb /\ writing st = false.
Proof.
  destruct st; cbn; try done; intros H%negb_false_iff%bool_decide_eq_true_1; done.
Qed.

Lemma invoke_step_inv weak g ts st i pc g' pc' notify :
  callback_inv {| cg_gate := g; cg_threads := ts; cg_setter := st |} ->
  ts !! i = Some pc -> invoke_step weak g pc = Some (g', pc', notify) ->
  callback_inv {| cg_gate := g'; cg_threads := <[i:=pc']> ts;
    cg_setter := if notify then set_wake st else st |}.
Proof.
  intros Hinv Hi Hs. pose proof Hinv as [Hw Hr Hsome Hwr Hwn Hwt Hth]. cbn [cg_gate cg_threads cg_setter] in *.
  pose proof (invoking_nonneg ts) as Hn. pose proof (Hth _ _ Hi) as Hok.
  pose proof (invoking_ge _ _ _ Hi) as Hge.
  assert (forall pc2 n2, invoking pc2 = invoking pc -> (n2 = false -> pc <> InvokeNotify) -> invoke_ok g pc2 ->
    callback_inv {| cg_gate := g; cg_threads := <[i:=pc2]> ts;
      cg_setter := if n2 : bool then set_wake st else st |}) as Hsame.
  { intros pc2 n2 Heq Hn2 Hok2. rewrite <- (with_word_id g) at 1.
    apply (thread_update g ts st i pc pc2 _ n2 Hinv Hi); rewrite ?Heq; try done.
    - rewrite Hw. f_equal. lia.
    - lia.
    - intros H0. assert (invoking_count ts <> 0) as Hne by (destruct pc; cbn in Hge, H0; lia).
      split; [auto|].
      destruct (writing st) eqn:He; [|done]. specialize (Hwr eq_refl). lia.
    - destruct (decide (invoking_count ts = 0)); [|right; left; lia]. right. right. by left. }
  destruct pc as [|w| |cb ctx| | |called]; cbn in Hs; try done.
  - injection Hs as <- <- <-. destruct (try_enter_ok g (m_state g)) as [H1 H2]. by apply (Hsame _ false).
  - destruct (try_enter_ok g (m_state g)) as [H1 H2].
    destruct (Z.eqb_spec (m_state g) w) as [Heq|_]; cbn [andb] in Hs.
    2:{ injection Hs as <- <- <-. by apply (Hsame _ false). }
    destruct weak; cbn [negb] in Hs; injection Hs as <- <- <-; [by apply (Hsame _ false)|].
    subst w. cbn in Hok. rewrite Hw, word_closed_word, word_count_word in Hok by lia.
    destruct Hok as [Hcl Hmask]. change s_kCountMask with (2 ^ 31 - 1) in Hmask.
    apply (thread_update g ts st i _ InvokeCall _ false Hinv Hi); cbn; try done.
    + rewrite Hw, Hcl. unfold word. rewrite wrap_id by (unfold in_u; lia). lia.
    + lia.
    + intros _. by apply closes_open.
    + right. left. lia.
  - injection Hs as <- <- <-. by apply (Hsame _ false).
  - injection Hs as <- <- <-. by apply (Hsame _ false).
  - cbn in Hge. injection Hs as <- <- <-. rewrite Hw, word_closed_word, word_count_word by lia.
    apply (thread_update g ts st i _ _ _ false Hinv Hi); try done.
    + assert (forall b, invoking (if b : bool then InvokeNotify else InvokeDone true) = 0) as Hz by by intros [].
      rewrite Hz. cbn [invoking]. unfold word. destruct (closes _ _); rewrite wrap_id by (unfold in_u; lia); lia.
    + destruct (_ && _); cbn; lia.
    + by destruct (_ && _).
    + destruct (closes st _) eqn:Hcl; cbn [andb].
      * destruct (Z.eqb_spec (invoking_count ts) 1); [by left|]. right. left. cbn. lia.
      * right. right. right. intros v cb ctx ->. done.
    + by destruct (_ && _).
  - injection Hs as <- <- <-. by apply (Hsame _ true).
Qed.

Lemma set_step_inv g ts st g' st' :
  callback_inv {| cg_gate := g; cg_threads := ts; cg_setter := st |} ->
  set_step g st = Some (g', st') ->
  callback_inv {| cg_gate := g'; cg_threads := ts; cg_setter := st' |}.
Proof.
  intros [Hw Hr Hsome Hwr Hwn Hwt Hth] Hs. cbn [cg_gate cg_threads cg_setter] in *.
  pose proof (invoking_nonneg ts) as Hn.
  assert (forall w cb ctx, writing st = false -> w = word true (invoking_count ts) ->
    callback_inv {| cg_gate := with_word w g; cg_threads := ts; cg_setter := closed_with w cb ctx |}) as Hcl.
  { intros w cb ctx Hwf ->. unfold closed_with. rewrite word_count_word by lia.
    destruct (Z.eqb_spec (invoking_count ts) 0) as [H0|H0]; constructor; cbn; try done.
    by rewrite word_count_word by lia. }
  assert (forall g2, invoking_count ts = 0 -> forall i pc, ts !! i = Some pc -> invoke_ok g2 pc) as Hfree.
  { intros g2 H0 i pc Hi. specialize (Hth _ _ Hi). pose proof (invoking_ge _ _ _ Hi) as Hge.
    destruct pc; cbn in Hge |- *; try done. lia. }
  destruct st as [|cb ctx|v cb ctx|v cb ctx|cb ctx|cb ctx|cb ctx|cb]; cbn in Hs, Hwr; try done.
  - injection Hs as <- <-. apply Hcl; [done|]. rewrite Hw. by apply word_close.
  - injection Hs as <- <-. destruct (Z.eqb_spec (m_state g) v) as [<-|Hne]; constructor; try done.
    cbn. split; [done|]. left. cbn in Hwt. rewrite Hw, word_count_word in Hwt; [done|lia].
  - injection Hs as <- <-. rewrite <- (with_word_id g) at 1. by apply Hcl.
  - injection Hs as <- <-. specialize (Hwr eq_refl). constructor; cbn; try done. by apply Hfree.
  - injection Hs as <- <-. specialize (Hwr eq_refl). constructor; cbn; try done. by apply Hfree.
  - injection Hs as <- <-. specialize (Hwr eq_refl). cbn in Hwn. subst cb.
    destruct (m_callback g) as [f|] eqn:Hf; constructor; cbn; rewrite ?Hf; try done; by rewrite ?Hwr.
Qed.

Lemma callback_step_inv s s' : callback_inv s -> callback_step s s' -> callback_inv s'.
Proof.
  intros Hinv Hs. destruct Hs as [s s' [g ts st i pc g' pc' notify Hi Hp|g ts st g' st' Hp]
    |g ts st i pc g' pc' notify Hi Hp ->|g ts st i called Hi|g ts cb ctx|g ts st].
  - by eapply invoke_step_inv.
  - by eapply set_step_inv.
  - apply (invoke_step_inv true g ts st i pc g' pc' false); done.
  - rewrite <- (with_word_id g).
    apply (thread_update g ts st i (InvokeDone called) InvokeLoad _ false Hinv Hi);
      destruct Hinv as [Hw Hr Hsome Hwr Hwn Hwt Hth]; cbn in *; try done; rewrite ?Z.sub_0_r, ?Z.add_0_r; try done.
    right. destruct (decide (invoking_count ts = 0)); [by right; left|by left].
  - destruct Hinv. by constructor.
  - destruct Hinv as [Hw Hr Hsome Hwr Hwn Hwt Hth]. constructor; cbn in *; try done.
    + by rewrite closes_wake.
    + by rewrite writing_wake.
    + by rewrite written_wake.
    + by eapply set_wait_wake.
Qed.

Lemma callback0_inv n : callback_inv (callback_system0 n).
Proof.
  assert (invoking_count (repeat (InvokeDone false) n) = 0) as H0 by by induction n.
  constructor; cbn; rewrite ?H0; try done.
  intros i pc Hi%list_elem_of_lookup_2. apply list_elem_of_In, repeat_spec in Hi. by subst pc.
Qed.

Lemma callback_reachable_inv n s : callback_reachable n s -> callback_inv s.
Proof.
  intros Hs. eapply (steps_invariant callback_step callback_inv); [|exact Hs|apply callback0_inv].
  intros ??. apply callback_step_inv.
Qed.

(** ** Termination *)

(** The changes of the word that the calls in progress have left. *)
Definition invoke_changes (pc : invoke_pc) : nat :=
  match pc with
  | InvokeLoad | InvokeTry _ => 2
  | InvokeCall | InvokeRun _ _ | InvokeLeave => 1
  | InvokeNotify | InvokeDone _ => 0
  end.
Definition set_changes (pc : set_pc) : nat :=
  match pc with SetIdle => 0 | SetClose _ _ => 2 | _ => 1 end.

(** The steps they have left while the word stays [w]. *)
Definition invoke_left (w : Z) (pc : invoke_pc) : nat :=
  match pc with
  | InvokeTry v => if w =? v then 1 else 2
  | InvokeLoad | InvokeCall => 3
  | InvokeRun _ _ => 2
  | InvokeLeave | InvokeNotify => 1
  | InvokeDone _ => 0
  end.
Definition set_left (w : Z) (pc : set_pc) : nat :=
  match pc with
  | SetIdle => 0
  | SetClose _ _ | SetBlocked _ _ _ => 1
  | SetWait v _ _ => if w =? v then 2 else 6
  | SetLoad _ _ => 5
  | SetCallback _ _ => 4
  | SetContext _ _ => 3
  | SetOpen _ => 2
  end.

Definition callback_left (s : callback_gate) : nat :=
  let w := m_state (cg_gate s) in
  (sum_list_with invoke_changes (cg_threads s) + set_changes (cg_setter s)) *
    (21 * length (cg_threads s) + 7) +
  7 * sum_list_with (invoke_left w) (cg_threads s) + set_left w (cg_setter s).

Lemma sum_insert {A} (f : A -> nat) ts i x y :
  ts !! i = Some x -> (sum_list_with f (<[i:=y]> ts) + f x = sum_list_with f ts + f y)%nat.
Proof.
  revert i. induction ts as [|z ts IH]; intros [|i] Hi; try done.
  - injection Hi as ->. cbn. lia.
  - specialize (IH i Hi). change (<[S i:=y]> (z :: ts)) with (z :: <[i:=y]> ts). cbn [sum_list_with]. lia.
Qed.

Lemma sum_bound {A} (f : A -> nat) k ts :
  (forall x, f x <= k)%nat -> (sum_list_with f ts <= k * length ts)%nat.
Proof. intros Hf. induction ts as [|x ts IH]; cbn [sum_list_with length]; [lia|]. specialize (Hf x). lia. Qed.

Lemma invoke_left_le w pc : (invoke_left w pc <= 3)%nat.
Proof. destruct pc; cbn; try lia. destruct (_ =? _); lia. Qed.
Lemma set_left_le w pc : (set_left w pc <= 6)%nat.
Proof. destruct pc; cbn; try lia. destruct (_ =? _); lia. Qed.

(** One change of the word is worth more than all steps between two changes. *)
Lemma change_pays s s' :
  length (cg_threads s') = length (cg_threads s) ->
  (sum_list_with invoke_changes (cg_threads s') + set_changes (cg_setter s') <
   sum_list_with invoke_changes (cg_threads s) + set_changes (cg_setter s))%nat ->
  (callback_left s' < callback_left s)%nat.
Proof.
  intros Hl Hlt. unfold callback_left. rewrite Hl.
  pose proof (sum_bound _ 3 (cg_threads s') (invoke_left_le (m_state (cg_gate s')))) as H1.
  pose proof (set_left_le (m_state (cg_gate s')) (cg_setter s')) as H2. rewrite Hl in H1. nia.
Qed.

(** The outcome of looking at the current word. *)
Lemma try_enter_left w : (invoke_left w (try_enter w) <= 1)%nat /\ (invoke_changes (try_enter w) <= 2)%nat.
Proof. unfold try_enter. destruct (_ || _); cbn; rewrite ?Z.eqb_refl; lia. Qed.
Lemma closed_with_left w cb ctx : (set_left w (closed_with w cb ctx) <= 4)%nat /\ set_changes (closed_with w cb ctx) = 1%nat.
Proof. unfold closed_with. destruct (negb _); cbn; rewrite ?Z.eqb_refl; lia. Qed.

(** A step of a thread changes the word, or gets the thread closer to its end. *)
Lemma invoke_step_left g pc g' pc' notify :
  invoke_step false g pc = Some (g', pc', notify) ->
  (invoke_changes pc' < invoke_changes pc)%nat \/
  g' = g /\ (invoke_changes pc' <= invoke_changes pc)%nat /\
  (invoke_left (m_state g) pc' < invoke_left (m_state g) pc)%nat.
Proof.
  pose proof (try_enter_left (m_state g)) as [H1 H2].
  destruct pc as [|w| |cb ctx| | |called]; cbn; try done; rewrite ?andb_true_r.
  - intros [= <- <- <-]. right. split; [done|lia].
  - destruct (_ =? w); intros [= <- <- <-]; [left; cbn; lia|]. right. split; [done|lia].
  - intros [= <- <- <-]. right. split; [done|cbn; lia].
  - intros [= <- <- <-]. right. split; [done|cbn; lia].
  - intros [= <- <- <-]. left. destruct (_ && _); cbn; lia.
  - intros [= <- <- <-]. right. split; [done|cbn; lia].
Qed.

Lemma set_step_left g pc g' pc' :
  set_step g pc = Some (g', pc') ->
  (set_changes pc' < set_changes pc)%nat \/
  m_state g' = m_state g /\ set_changes pc' = set_changes pc /\
  (set_left (m_state g) pc' < set_left (m_state g) pc)%nat.
Proof.
  destruct pc as [|cb ctx|v cb ctx|v cb ctx|cb ctx|cb ctx|cb ctx|cb]; cbn; try done; intros [= <- <-].
  - left. destruct (closed_with_left (Z.lor (m_state g) s_kClosed) cb ctx) as [_ ->]. lia.
  - right. destruct (_ =? v); (split; [done|]; split; [done|cbn; lia]).
  - right. destruct (closed_with_left (m_state g) cb ctx) as [H1 ->]. split; [done|]. split; [done|lia].
  - right. split; [done|]. split; [done|cbn; lia].
  - right. split; [done|]. split; [done|cbn; lia].
  - left. cbn. lia.
Qed.

Lemma callback_run_left s s' : callback_run s s' -> (callback_left s' < callback_left s)%nat.
Proof.
  intros [g ts st i pc g' pc' notify Hi Hs|g ts st g' st' Hs].
  - pose proof (sum_insert invoke_changes ts i pc pc' Hi) as Hc.
    apply invoke_step_left in Hs as [Hlt|(-> & Hle & Hlt)].
    + apply change_pays; cbn; [by rewrite length_insert|]. destruct notify, st; cbn; lia.
    + pose proof (sum_insert (invoke_left (m_state g)) ts i pc pc' Hi) as Hl.
      destruct (decide (invoke_changes pc' = invoke_changes pc)) as [He|He].
      2:{ apply change_pays; cbn; [by rewrite length_insert|]. destruct notify, st; cbn; lia. }
      unfold callback_left; cbn. rewrite length_insert.
      replace (sum_list_with invoke_changes (<[i:=pc']> ts)) with (sum_list_with invoke_changes ts) by lia.
      pose proof (set_left_le (m_state g) (if notify then set_wake st else st)) as Hle2.
      replace (set_changes (if notify then set_wake st else st)) with (set_changes st)
        by (destruct notify; [by destruct st|done]).
      lia.
  - apply set_step_left in Hs as [Hlt|(Hw & Hc & Hlt)].
    + apply change_pays; cbn; [done|lia].
    + unfold callback_left; cbn. rewrite Hw, Hc. lia.
Qed.

Lemma callback_run_bounded k s s' :
  nsteps callback_run k s s' -> (k + callback_left s' <= callback_left s)%nat.
Proof. induction 1 as [|k s1 s2 s3 Hs _ IH]; [lia|]. apply callback_run_left in Hs. lia. Qed.

Lemma callback_stuck s :
  callback_inv s -> (forall s', ~ callback_run s s') ->
  cg_setter s = SetIdle /\ Forall (fun pc => exists called, pc = InvokeDone called) (cg_threads s).
Proof.
  intros [Hw Hr Hsome Hwr Hwn Hwt Hth] Hstuck. destruct s as [g ts st]. cbn in *.
  assert (Forall (fun pc => exists called, pc = InvokeDone called) ts) as Hd.
  { apply Forall_lookup. intros i pc Hi. destruct (invoke_step false g pc) as [[[g' pc'] nt]|] eqn:Hs.
    - exfalso. eapply Hstuck. by eapply callback_run_invoke.
    - destruct pc; cbn in Hs; try done; [by destruct (_ && _)|by eexists]. }
  split; [|done]. destruct (set_step g st) as [[g' st']|] eqn:Hs.
  - exfalso. eapply Hstuck. by eapply callback_run_set.
  - destruct st as [| | |w cb ctx| | | |]; try done. exfalso.
    rewrite Forall_lookup in Hd. destruct Hwt as [_ [Hne|(i & Hi)]].
    + apply Hne. clear -Hd. induction ts as [|pc ts IH]; [done|]. cbn [invoking_count].
      rewrite IH by (intros i x Hi; by apply (Hd (S i))). by destruct (Hd O pc eq_refl) as [b ->].
    + by destruct (Hd _ _ Hi) as [b Hb].
Qed.

(** ** Theorems *)

(** C20: an invocation runs the callback that is installed, with its own
    context, and never while it is being replaced.  In every reachable state
    (any number of receive threads, any sequence of calls of [set] and [clear])
    a thread inside the callback is in the installed one, with the installed
    context; when the setter reads the gate as empty, and until it opens it
    again, no thread is in the callback or between the check and its end, so
    the plain members are not accessed by two threads and, once [set] has
    returned, the previous callback neither runs nor will run; without a
    callback nobody enters.  The count never reaches the closed bit. *)
Theorem callback_exclusive threads s :
  callback_reachable threads s ->
  (forall i cb ctx, cg_threads s !! i = Some (InvokeRun cb ctx) ->
     is_Some cb /\ cb = m_callback (cg_gate s) /\ ctx = m_context (cg_gate s)) /\
  (writing (cg_setter s) = true \/ m_callback (cg_gate s) = None ->
     forall i pc, cg_threads s !! i = Some pc -> invoking pc = 0) /\
  (m_callback (cg_gate s) = None -> cg_setter s = SetIdle ->
     try_enter (m_state (cg_gate s)) = InvokeDone false) /\
  word_count (m_state (cg_gate s)) = invoking_count (cg_threads s).
Proof.
  intros [Hw Hr Hsome Hwr Hwn Hwt Hth]%callback_reachable_inv. pose proof (invoking_nonneg (cg_threads s)) as Hn.
  assert (writing (cg_setter s) = true \/ m_callback (cg_gate s) = None ->
     forall i pc, cg_threads s !! i = Some pc -> invoking pc = 0) as Hnone.
  { intros Hor i pc Hi%invoking_ge. assert (invoking_count (cg_threads s) = 0).
    { destruct Hor as [?|Hn0]; [auto|]. destruct (decide (invoking_count (cg_threads s) = 0)) as [|Hne]; [done|].
      destruct (Hsome Hne) as [x Hx]. congruence. }
    destruct pc; cbn in Hi |- *; lia. }
  split_and!; [|done| |by rewrite Hw, word_count_word].
  - intros i cb ctx Hi. destruct (Hth _ _ Hi) as [-> ->]. split_and!; try done.
    destruct (m_callback (cg_gate s)) eqn:Hcb; [by eexists|]. by specialize (Hnone (or_intror eq_refl) _ _ Hi).
  - intros Hcb Hst. unfold try_enter. rewrite Hw, Hcb, Hst. cbn [closes]. by rewrite word_closed_word.
Qed.

(** Replacing a callback ends.  From a reachable state, a run without new
    calls and without spurious failures has at most [callback_left] steps,
    however the threads interleave, and it can stop only where [set] and every
    [invoke] have returned: the last invocation to leave a closed gate wakes
    the setter, and no wake-up is lost. *)
Theorem callback_set_returns threads s k s' :
  callback_reachable threads s -> nsteps callback_run k s s' ->
  (k <= callback_left s)%nat /\
  ((forall s'', ~ callback_run s' s'') ->
   cg_setter s' = SetIdle /\ Forall (fun pc => exists called, pc = InvokeDone called) (cg_threads s')).
Proof.
  intros Hs%callback_reachable_inv Hk. split; [apply callback_run_bounded in Hk; lia|].
  apply callback_stuck. clear -Hs Hk. induction Hk as [|k s1 s2 s3 Hr _ IH]; [done|]. apply IH.
  eapply callback_step_inv; [exact Hs|by apply callback_step_run].
Qed.

(** *** A run: a callback is installed and invoked, [clear] blocks on it *)

(** Thread [Some i] or the setter makes its next access. *)
Definition callback_thread (who : option nat) (s : callback_gate) : option callback_gate :=
  match who with
  | Some i =>
      match pc ← cg_threads s !! i; invoke_step false (cg_gate s) pc with
      | Some (g', pc', notify) =>
          Some {| cg_gate := g'; cg_threads := <[i:=pc']> (cg_threads s);
                  cg_setter := if notify : bool then set_wake (cg_setter s) else cg_setter s |}
      | None => None
      end
  | None =>
      match set_step (cg_gate s) (cg_setter s) with
      | Some (g', st') => Some {| cg_gate := g'; cg_threads := cg_threads s; cg_setter := st' |}
      | None => None
      end
  end.

Fixpoint callback_threads (whos : list (option nat)) (s : callback_gate) : option callback_gate :=
  match whos with
  | [] => Some s
  | who :: whos' => s' ← callback_thread who s; callback_threads whos' s'
  end.

Lemma callback_thread_run who s s' : callback_thread who s = Some s' -> callback_run s s'.
Proof.
  destruct s as [g ts st], who as [i|]; cbn.
  - destruct (ts !! i) as [pc|] eqn:Hi; cbn; [|done].
    destruct (invoke_step false g pc) as [[[g' pc'] nt]|] eqn:Hs; cbn; [|done]. intros [= <-].
    by eapply callback_run_invoke.
  - destruct (set_step g st) as [[g' st']|] eqn:Hs; cbn; [|done]. intros [= <-].
    by eapply callback_run_set.
Qed.

Lemma callback_threads_nsteps whos s s' :
  callback_threads whos s = Some s' -> nsteps callback_run (length whos) s s'.
Proof.
  revert s. induction whos as [|w ws IH]; intros s; cbn; [by intros [= <-]; constructor|].
  destruct (callback_thread w s) as [s1|] eqn:H1; cbn; [|done]. intros H. econstructor; [|by apply IH].
  by eapply callback_thread_run.
Qed.

Lemma callback_threads_steps whos s s' : callback_threads whos s = Some s' -> steps callback_step s s'.
Proof.
  intros H%callback_threads_nsteps. induction H as [|k s1 s2 s3 Hs _ IH]; [constructor|].
  eapply steps_cons; [by apply callback_step_run|done].
Qed.

Definition callback_installing : callback_gate :=
  {| cg_gate := callback_gate0; cg_threads := [InvokeLoad]; cg_setter := SetClose (Some 7) 9 |}.
Definition callback_running : callback_gate :=
  default callback_installing
    (callback_threads [None; None; None; None; Some 0; Some 0; Some 0]%nat callback_installing).
Definition callback_clearing : callback_gate :=
  {| cg_gate := cg_gate callback_running; cg_threads := cg_threads callback_running;
     cg_setter := SetClose None 0 |}.
Definition callback_blocked : callback_gate :=
  default callback_installing (callback_threads [None; None] callback_clearing).
Definition callback_returned : callback_gate :=
  default callback_installing
    (callback_threads [Some 0; Some 0; Some 0; None; None; None; None; None]%nat callback_blocked).

Example callback_runs :
  cg_threads callback_running = [InvokeRun (Some 7) 9] /\
  cg_setter callback_blocked = SetBlocked (s_kClosed + 1) None 0 /\
  cg_setter callback_returned = SetIdle /\ cg_threads callback_returned = [InvokeDone true].
Proof. by vm_compute. Qed.

Lemma callback_running_reachable : callback_reachable 1 callback_running.
Proof.
  eapply steps_cons; [by apply (callback_step_invoke _ _ _ 0 false)|].
  eapply steps_cons; [apply (callback_step_set _ _ (Some 7) 9)|].
  apply (callback_threads_steps [None; None; None; None; Some 0; Some 0; Some 0]%nat). by vm_compute.
Qed.

Lemma callback_blocked_reachable : callback_reachable 1 callback_blocked.
Proof.
  eapply steps_trans; [apply callback_running_reachable|].
  eapply steps_cons; [by apply (callback_step_set _ _ None 0)|].
  apply (callback_threads_steps [None; None]). by vm_compute.
Qed.

Lemma callback_exclusive_witness :
  cg_threads callback_running !! 0%nat = Some (InvokeRun (Some 7) 9) /\
  Some 7 = m_callback (cg_gate callback_running) /\ 9 = m_context (cg_gate callback_running).
Proof.
  assert (cg_threads callback_running !! 0%nat = Some (InvokeRun (Some 7) 9)) as Hi by (vm_compute; reflexivity).
  split; [exact Hi|].
  exact (proj2 (proj1 (callback_exclusive 1 callback_running callback_running_reachable) _ _ _ Hi)).
Defined.

Lemma callback_set_returns_witness :
  (8 <= callback_left callback_blocked)%nat /\
  ((forall s'', ~ callback_run callback_returned s'') ->
   cg_setter callback_returned = SetIdle /\
   Forall (fun pc => exists called, pc = InvokeDone called) (cg_threads callback_returned)).
Proof.
  apply (callback_set_returns 1 callback_blocked 8 callback_returned); [apply callback_blocked_reachable|].
  apply (callback_threads_nsteps [Some 0; Some 0; Some 0; None; None; None; None; None]%nat). by vm_compute.
Defined.
