(* ===== verification/FciRpc.v ===== *)
(** * Managed RPC calls

    The generated client side of an RPC in [generated/wirelink]: the 20-byte
    header of [host/fci_device_runtime.c] (lines 36-65), sending a message
    ([codec/fci_device_bindings.c], [*_send]), and starting, inspecting,
    decoding and releasing a call ([host/fci_device_runtime.c],
    [fci_device_*_client_*]).  The generator writes these once per RPC with the
    RPC's two message ids and tables; here they take them as an argument.

    The link library underneath is third-party code: its operations are the
    class [Link], on a state [W] of which nothing is assumed. *)

From Stdlib Require Import String.
From S2P Require Import Prelude WlcWire WlcSchema WlcCodec WlcRoundtrip FciMessages FciProperties.
From S2P Require Import DeviceTypes Endpoint.

(** ** The header *)

Definition fci_device_rpc_read_u32 (l : bytes) : Z :=
  match l with
  | a :: b :: c :: d :: _ =>
      Z.lor (Z.lor (Z.lor (u32 (Z.shiftl a 24)) (Z.shiftl b 16)) (Z.shiftl c 8)) d
  | _ => 0
  end.

Definition fci_device_rpc_write_u32 (v : Z) : bytes :=
  [u8 (Z.shiftr v 24); u8 (Z.shiftr v 16); u8 (Z.shiftr v 8); u8 v].

Inductive wl_rpc_err :=
| WL_RPC_OK | WL_RPC_ERR_NO_SLOT | WL_RPC_ERR_NOT_FOUND | WL_RPC_ERR_INVALID_ARG
| WL_RPC_ERR_RESPONSE_MISMATCH | WL_RPC_ERR_INVALID_STATE | WL_RPC_ERR_MALFORMED_METADATA
| WL_RPC_ERR_SESSION_MISMATCH | WL_RPC_ERR_RESPONSE_TOO_LARGE | WL_RPC_ERR_NOT_INITIALIZED
| WL_RPC_ERR_OTHER.
#[global] Instance wl_rpc_err_eq_dec : EqDecision wl_rpc_err.
Proof. solve_decision. Defined.

Record rpc_header := { h_operation_id : Z; h_status : Z; h_session : Z }.

Definition fci_device_rpc_header_read (kind : Z) (data : bytes) : res wl_rpc_err rpc_header :=
  if (length data <? 20)%nat || negb (nth 0 data 0 =? 0) || negb (nth 1 data 0 =? 2) ||
     negb (nth 2 data 0 =? kind) || negb (nth 3 data 0 =? 0)
  then Err WL_RPC_ERR_MALFORMED_METADATA
  else
    let operation_id := fci_device_rpc_read_u32 (drop 4 data) in
    let bits := fci_device_rpc_read_u32 (drop 8 data) in
    let session := Z.lor (u64 (Z.shiftl (fci_device_rpc_read_u32 (drop 12 data)) 32))
      (fci_device_rpc_read_u32 (drop 16 data)) in
    let status := if bits <=? 2147483647 then bits else -1 - (4294967295 - bits) in
    if (session =? 0) || (operation_id =? 0) || ((kind =? 1) && negb (status =? 0))
    then Err WL_RPC_ERR_MALFORMED_METADATA
    else Ok {| h_operation_id := operation_id; h_status := status; h_session := session |}.

(** The first 20 bytes of [data]. *)
Definition fci_device_rpc_header_write (kind : Z) (h : rpc_header) : bytes :=
  [0; 2; kind; 0] ++ fci_device_rpc_write_u32 (h_operation_id h) ++
  fci_device_rpc_write_u32 (u32 (h_status h)) ++
  fci_device_rpc_write_u32 (u32 (Z.shiftr (h_session h) 32)) ++
  fci_device_rpc_write_u32 (u32 (h_session h)).

(** ** The link library *)

(** [WL_RPC_CLIENT_COMPLETED] is the first of the states in which a call has
    ended; the others are grouped. *)
Inductive wl_rpc_client_state :=
| WL_RPC_CLIENT_LINK_PENDING | WL_RPC_CLIENT_WAIT_RESPONSE | WL_RPC_CLIENT_COMPLETED
| WL_RPC_CLIENT_APPLICATION_ERROR | WL_RPC_CLIENT_TIMED_OUT | WL_RPC_CLIENT_OTHER_END.
#[global] Instance wl_rpc_client_state_eq_dec : EqDecision wl_rpc_client_state.
Proof. solve_decision. Defined.

Definition rpc_pending (st : wl_rpc_client_state) : bool :=
  match st with WL_RPC_CLIENT_LINK_PENDING | WL_RPC_CLIENT_WAIT_RESPONSE => true | _ => false end.

Record wl_rpc_client_result_t := {
  rc_operation_id : Z;
  rc_request_message_id : Z;
  rc_response_message_id : Z;
  rc_state : wl_rpc_client_state;
  rc_application_status : Z;
  rc_link_result : wl_result;
  rc_runtime_error : wl_rpc_err;
  rc_tx_handle : Z;
  rc_response_data : option bytes
}.

Class Link (W : Type) := {
  wl_endpoint_now : W -> Z;
  wl_rpc_client_begin : Z -> Z -> Z -> Z -> W -> wl_rpc_err * Z * W;
  wl_rpc_client_begin_with_id : Z -> Z -> Z -> Z -> Z -> W -> wl_rpc_err * W;
  wl_rpc_client_link_failed : Z -> wl_result -> W -> wl_rpc_err * W;
  wl_rpc_client_bind_tx : Z -> Z -> W -> wl_rpc_err * W;
  wl_rpc_client_get : Z -> W -> res wl_rpc_err wl_rpc_client_result_t;
  wl_rpc_client_cancel : Z -> W -> W;
  wl_rpc_client_release : Z -> W -> wl_rpc_err * W;
  wl_tx_cancel : Z -> W -> W;
  (* the message id, whether delivery is reliable; the size of the claimed span *)
  wl_tx_payload_claim : Z -> bool -> W -> wl_result * Z * W;
  wl_tx_payload_abort : W -> W;
  (* the payload, the time, whether delivery is reliable; the handle *)
  wl_tx_payload_commit : bytes -> Z -> bool -> W -> wl_result * Z * W
}.

(** ** Sending a message *)

Inductive fci_device_send_domain :=
| FCI_DEVICE_SEND_OK | FCI_DEVICE_SEND_CODEC_ERROR | FCI_DEVICE_SEND_CORE_ERROR.
#[global] Instance fci_device_send_domain_eq_dec : EqDecision fci_device_send_domain.
Proof. solve_decision. Defined.

Record fci_device_send_result_t := {
  sent_domain : fci_device_send_domain;
  sent_codec_status : wl_codec_status;
  sent_core_result : wl_result;
  sent_payload_length : Z;
  sent_handle : Z
}.

Inductive fci_device_runtime_domain :=
| FCI_DEVICE_RUNTIME_OK | FCI_DEVICE_RUNTIME_NON_RX | FCI_DEVICE_RUNTIME_UNKNOWN_MESSAGE
| FCI_DEVICE_RUNTIME_MISSING_ROUTE | FCI_DEVICE_RUNTIME_MISSING_SCRATCH
| FCI_DEVICE_RUNTIME_DELIVERY_MISMATCH | FCI_DEVICE_RUNTIME_CODEC_ERROR
| FCI_DEVICE_RUNTIME_STORAGE_ERROR | FCI_DEVICE_RUNTIME_RPC_ERROR | FCI_DEVICE_RUNTIME_CORE_ERROR
| FCI_DEVICE_RUNTIME_APPLICATION_ERROR | FCI_DEVICE_RUNTIME_INVALID_ARGUMENT.
#[global] Instance fci_device_runtime_domain_eq_dec : EqDecision fci_device_runtime_domain.
Proof. solve_decision. Defined.

(** [fci_device_runtime_result_t] with its RPC detail. *)
Record fci_device_runtime_result_t := {
  rt_domain : fci_device_runtime_domain;
  rt_operation_id : Z;
  rt_rpc_result : wl_rpc_err;
  rt_core_result : wl_result;
  rt_codec_status : wl_codec_status
}.

Definition fci_device_runtime_result_ok (r : fci_device_runtime_result_t) : bool :=
  bool_decide (rt_domain r = FCI_DEVICE_RUNTIME_OK).

(** An RPC: the ids and tables of its request and response. *)
Record rpc := {
  rpc_request_id : Z;
  rpc_response_id : Z;
  rpc_request : wlc_desc;
  rpc_response : wlc_desc
}.
Definition get_boot_status_rpc : rpc := {|
  rpc_request_id := 28928; rpc_response_id := 28929;
  rpc_request := get_boot_status_request_desc; rpc_response := get_boot_status_response_desc |}.
Definition start_upgrade_rpc : rpc := {|
  rpc_request_id := 28930; rpc_response_id := 28931;
  rpc_request := start_upgrade_request_desc; rpc_response := start_upgrade_response_desc |}.
Definition reboot_rpc : rpc := {|
  rpc_request_id := 28932; rpc_response_id := 28933;
  rpc_request := reboot_request_desc; rpc_response := reboot_response_desc |}.

Section link.
Context {W : Type} `{Link W}.

(** [fci_device_*_send]. *)
Definition message_send (d : wlc_desc) (message_id : Z) (message : wstruct) (reliable : bool)
    (now : Z) (w : W) : fci_device_send_result_t * W :=
  let '(core, capacity, w) := wl_tx_payload_claim message_id reliable w in
  if decide (core = WL_OK) then
    match wlc_encode d message capacity with
    | (Err codec, _) =>
        ({| sent_domain := FCI_DEVICE_SEND_CODEC_ERROR; sent_codec_status := codec;
            sent_core_result := WL_OK; sent_payload_length := 0; sent_handle := 0 |},
         wl_tx_payload_abort w)
    | (Ok n, payload) =>
        let '(core, handle, w) := wl_tx_payload_commit payload now reliable w in
        ({| sent_domain := if decide (core = WL_OK) then FCI_DEVICE_SEND_OK
              else FCI_DEVICE_SEND_CORE_ERROR;
            sent_codec_status := WL_CODEC_OK; sent_core_result := core; sent_payload_length := n;
            sent_handle := if reliable then handle else 0 |}, w)
    end
  else
    ({| sent_domain := FCI_DEVICE_SEND_CORE_ERROR; sent_codec_status := WL_CODEC_OK;
        sent_core_result := core; sent_payload_length := 0; sent_handle := 0 |}, w).

(** ** A call *)

(** [fci_device_*_client_finish_start]. *)
Definition client_finish_start (operation_id : Z) (sent : fci_device_send_result_t) (w : W)
    : fci_device_runtime_result_t * W :=
  let failed link_result domain :=
    let '(r1, w) := wl_rpc_client_link_failed operation_id link_result w in
    let '(r2, w) := if decide (r1 = WL_RPC_OK) then wl_rpc_client_release operation_id w
                    else (r1, w) in
    ({| rt_domain := domain; rt_operation_id := if decide (r2 = WL_RPC_OK) then 0 else operation_id;
        rt_rpc_result := r2; rt_core_result := sent_core_result sent;
        rt_codec_status := sent_codec_status sent |}, w) in
  match sent_domain sent with
  | FCI_DEVICE_SEND_CODEC_ERROR => failed WL_ERR_CORRUPT_PAYLOAD FCI_DEVICE_RUNTIME_CODEC_ERROR
  | FCI_DEVICE_SEND_CORE_ERROR => failed (sent_core_result sent) FCI_DEVICE_RUNTIME_CORE_ERROR
  | FCI_DEVICE_SEND_OK =>
      let '(r, w) := wl_rpc_client_bind_tx operation_id (sent_handle sent) w in
      ({| rt_domain := if decide (r = WL_RPC_OK) then FCI_DEVICE_RUNTIME_OK
            else FCI_DEVICE_RUNTIME_RPC_ERROR;
          rt_operation_id := operation_id; rt_rpc_result := r;
          rt_core_result := sent_core_result sent; rt_codec_status := sent_codec_status sent |}, w)
  end.

(** [fci_device_*_client_start], of which [now] is the time. *)
Definition client_start (c : rpc) (request : wstruct) (timeout now : Z) (w : W)
    : fci_device_runtime_result_t * W :=
  let '(has_id, given) := wire_int (rpc_request c) "operation_id" request in
  let '(begun, operation_id, w) :=
    if has_id && negb (given =? 0) then
      let '(r, w) := wl_rpc_client_begin_with_id given (rpc_request_id c) (rpc_response_id c)
        timeout now w in (r, given, w)
    else wl_rpc_client_begin (rpc_request_id c) (rpc_response_id c) timeout now w in
  if decide (begun = WL_RPC_OK) then
    let encoded := set_scalar (rpc_request c) "operation_id" operation_id request in
    let '(sent, w) := message_send (rpc_request c) (rpc_request_id c) encoded true now w in
    client_finish_start operation_id sent w
  else
    ({| rt_domain := FCI_DEVICE_RUNTIME_RPC_ERROR; rt_operation_id := operation_id;
        rt_rpc_result := begun; rt_core_result := WL_OK; rt_codec_status := WL_CODEC_OK |}, w).

(** [fci_device_endpoint_*_start]: at the endpoint's time. *)
Definition endpoint_start (c : rpc) (request : wstruct) (timeout : Z) (w : W)
    : fci_device_runtime_result_t * W :=
  client_start c request timeout (wl_endpoint_now w) w.

(** [fci_device_*_client_inspect]. *)
Definition client_inspect (c : rpc) (operation_id : Z) (w : W) : res wl_rpc_err wl_rpc_client_result_t :=
  if operation_id =? 0 then Err WL_RPC_ERR_INVALID_ARG
  else
    match wl_rpc_client_get operation_id w with
    | Err e => Err e
    | Ok client =>
        if (rc_request_message_id client =? rpc_request_id c) &&
           (rc_response_message_id client =? rpc_response_id c)
        then Ok client else Err WL_RPC_ERR_RESPONSE_MISMATCH
    end.

(** [fci_device_*_client_release]. *)
Definition client_release (c : rpc) (operation_id : Z) (w : W) : wl_rpc_err * W :=
  match client_inspect c operation_id w with
  | Err e => (e, w)
  | Ok _ => wl_rpc_client_release operation_id w
  end.
End link.

(** [fci_device_*_client_decode]: the result and, where it is not cleared, the
    response. *)
Definition client_decode (c : rpc) (client : wl_rpc_client_result_t)
    : fci_device_runtime_result_t * wstruct :=
  let result domain rpc_result codec :=
    {| rt_domain := domain; rt_operation_id := rc_operation_id client; rt_rpc_result := rpc_result;
       rt_core_result := rc_link_result client; rt_codec_status := codec |} in
  let cleared := wlc_clear (rpc_response c) [] in
  if rc_operation_id client =? 0
  then (result FCI_DEVICE_RUNTIME_INVALID_ARGUMENT WL_RPC_OK WL_CODEC_OK, cleared)
  else if negb (rc_request_message_id client =? rpc_request_id c) ||
     negb (rc_response_message_id client =? rpc_response_id c)
  then (result FCI_DEVICE_RUNTIME_RPC_ERROR WL_RPC_ERR_RESPONSE_MISMATCH WL_CODEC_OK, cleared)
  else
    match rc_state client, rc_response_data client with
    | (WL_RPC_CLIENT_COMPLETED | WL_RPC_CLIENT_APPLICATION_ERROR), Some (b :: data) =>
        let '(codec, response) := wlc_decode (rpc_response c) (b :: data) cleared in
        if decide (codec = WL_CODEC_OK) then
          let '(has_id, id) := wire_int (rpc_response c) "operation_id" response in
          let '(has_status, status) := wire_int (rpc_response c) "status" response in
          if negb has_id || negb (id =? rc_operation_id client) || negb has_status ||
             negb (status =? rc_application_status client)
          then (result FCI_DEVICE_RUNTIME_RPC_ERROR WL_RPC_ERR_RESPONSE_MISMATCH WL_CODEC_OK, response)
          else (result FCI_DEVICE_RUNTIME_OK WL_RPC_OK WL_CODEC_OK, response)
        else (result FCI_DEVICE_RUNTIME_CODEC_ERROR WL_RPC_OK codec, response)
    | _, _ => (result FCI_DEVICE_RUNTIME_RPC_ERROR WL_RPC_ERR_INVALID_STATE WL_CODEC_OK, cleared)
    end.

(** ** The header is read back *)

Lemma read_u32_bytes a b c d rest :
  in_u 8 a -> in_u 8 b -> in_u 8 c -> in_u 8 d ->
  fci_device_rpc_read_u32 (a :: b :: c :: d :: rest) = a * 2 ^ 24 + b * 2 ^ 16 + c * 2 ^ 8 + d.
Proof.
  unfold in_u. intros Ha Hb Hc Hd. cbn [fci_device_rpc_read_u32].
  rewrite wrap_id by (rewrite Z.shiftl_mul_pow2 by lia; unfold in_u; lia).
  rewrite (shiftl_lor_add a (Z.shiftl b 16) 24)
    by (rewrite ?Z.shiftl_mul_pow2 by lia; unfold in_u; lia).
  replace (a * 2 ^ 24 + Z.shiftl b 16) with (Z.shiftl (a * 2 ^ 8 + b) 16)
    by (rewrite !Z.shiftl_mul_pow2 by lia; lia).
  rewrite (shiftl_lor_add _ (Z.shiftl c 8) 16)
    by (rewrite ?Z.shiftl_mul_pow2 by lia; unfold in_u; lia).
  replace ((a * 2 ^ 8 + b) * 2 ^ 16 + Z.shiftl c 8)
    with (Z.shiftl ((a * 2 ^ 8 + b) * 2 ^ 8 + c) 8)
    by (rewrite !Z.shiftl_mul_pow2 by lia; lia).
  rewrite shiftl_lor_add by (unfold in_u; lia). lia.
Qed.

Lemma read_write_u32 v rest :
  in_u 32 v -> fci_device_rpc_read_u32 (fci_device_rpc_write_u32 v ++ rest) = v.
Proof.
  intros Hv. unfold fci_device_rpc_write_u32. cbn [app].
  rewrite read_u32_bytes by (apply wrap_range; lia).
  unfold wrap, in_u in *. rewrite !Z.shiftr_div_pow2 by lia.
  change (2 ^ 8) with 256. change (2 ^ 16) with 65536. change (2 ^ 24) with 16777216.
  rewrite (Z.mod_small (v / 16777216)) by (split; [apply Z.div_pos|apply Z.div_lt_upper_bound]; lia).
  replace (v / 16777216) with (v / 65536 / 256) by (rewrite Z.div_div by lia; done).
  pose proof (Z.div_mod (v / 65536) 256 ltac:(lia)) as H1.
  replace (v / 65536) with (v / 256 / 256) in H1 |- * by (rewrite Z.div_div by lia; done).
  pose proof (Z.div_mod (v / 256) 256 ltac:(lia)) as H2.
  pose proof (Z.div_mod v 256 ltac:(lia)) as H3. lia.
Qed.

Lemma write_u32_length v : length (fci_device_rpc_write_u32 v) = 4%nat.
Proof. done. Qed.

(** The word at offset [4 * k] of a sequence of words. *)
Lemma read_word k (ws : list Z) rest v :
  ws !! k = Some v -> in_u 32 v ->
  fci_device_rpc_read_u32 (drop (4 * k) (concat (map fci_device_rpc_write_u32 ws) ++ rest)) = v.
Proof.
  intros Hk Hv. revert ws Hk. induction k as [|k IH]; intros [|w ws] Hk; try done.
  - injection Hk as ->. cbn [map concat]. rewrite <- app_assoc. by apply read_write_u32.
  - cbn [map concat]. rewrite <- app_assoc. replace (4 * S k)%nat with (4 + 4 * k)%nat by lia.
    rewrite <- drop_drop. by apply IH.
Qed.

Lemma status_read z :
  in_s 32 z ->
  (if u32 z <=? 2147483647 then u32 z else -1 - (4294967295 - u32 z)) = z.
Proof.
  unfold in_s, wrap. intros Hz. change (2 ^ (32 - 1)) with 2147483648 in Hz.
  change (2 ^ 32) with 4294967296. destruct (Z.ltb_spec z 0).
  - replace (z mod 4294967296) with (z + 4294967296); [zcases; lia|].
    rewrite <- (Z.mod_add z 1) by lia. rewrite Z.mod_small; lia.
  - rewrite Z.mod_small by lia. zcases; lia.
Qed.

Lemma session_read z :
  in_u 64 z -> Z.lor (u64 (Z.shiftl (u32 (Z.shiftr z 32)) 32)) (u32 z) = z.
Proof.
  unfold in_u, wrap. intros Hz. rewrite Z.shiftr_div_pow2 by lia.
  change (2 ^ 64) with 18446744073709551616 in *. change (2 ^ 32) with 4294967296.
  rewrite (Z.mod_small (z / 4294967296))
    by (split; [apply Z.div_pos|apply Z.div_lt_upper_bound]; lia).
  pose proof (Z.div_mod z 4294967296 ltac:(lia)) as Hdm.
  pose proof (Z.mod_pos_bound z 4294967296 ltac:(lia)) as Hm.
  rewrite Z.mod_small by (rewrite Z.shiftl_mul_pow2 by lia; lia).
  rewrite shiftl_lor_add by (unfold in_u; lia). lia.
Qed.

(** The four words of a header. *)
Lemma header_word kind h payload n k v :
  n = (4 + 4 * k)%nat ->
  [h_operation_id h; u32 (h_status h); u32 (Z.shiftr (h_session h) 32); u32 (h_session h)] !! k
    = Some v -> in_u 32 v ->
  fci_device_rpc_read_u32 (drop n (fci_device_rpc_header_write kind h ++ payload)) = v.
Proof.
  intros -> Hk Hv. rewrite <- drop_drop. exact (read_word k _ payload v Hk Hv).
Qed.

Definition header_ok (kind : Z) (h : rpc_header) : Prop :=
  in_u 32 (h_operation_id h) /\ h_operation_id h <> 0 /\ in_s 32 (h_status h) /\
  in_u 64 (h_session h) /\ h_session h <> 0 /\ (kind = 1 -> h_status h = 0).

Lemma header_read_write kind h payload :
  header_ok kind h ->
  fci_device_rpc_header_read kind (fci_device_rpc_header_write kind h ++ payload) = Ok h.
Proof.
  intros (Hid & Hid0 & Hst & Hse & Hse0 & Hk).
  unfold fci_device_rpc_header_read.
  replace (_ <? 20)%nat with false by (symmetry; apply Nat.ltb_ge; rewrite length_app; cbn; lia).
  cbv zeta.
  rewrite (header_word kind h payload 4 0 (h_operation_id h)),
    (header_word kind h payload 8 1 (u32 (h_status h))),
    (header_word kind h payload 12 2 (u32 (Z.shiftr (h_session h) 32))),
    (header_word kind h payload 16 3 (u32 (h_session h)))
    by (done || apply wrap_range; lia).
  unfold fci_device_rpc_header_write. cbn [app nth]. rewrite !Z.eqb_refl. cbn [negb orb].
  rewrite status_read, session_read by done.
  rewrite (proj2 (Z.eqb_neq _ _) Hse0), (proj2 (Z.eqb_neq _ _) Hid0). cbn [orb].
  destruct (Z.eqb_spec kind 1) as [->|]; [|by destruct h].
  rewrite (proj2 (Z.eqb_eq (h_status h) 0) (Hk eq_refl)). by destruct h.
Qed.

(** The header of a managed RPC is read back as it was written, whatever
    payload follows: the correlation id, the signed status and the 64-bit
    session.  A header of another kind (a request taken for a response) or
    shorter than its 20 bytes is refused. *)
Theorem rpc_header_roundtrip kind h payload :
  header_ok kind h ->
  length (fci_device_rpc_header_write kind h) = 20%nat /\
  fci_device_rpc_header_read kind (fci_device_rpc_header_write kind h ++ payload) = Ok h /\
  (forall kind', kind' <> kind ->
   fci_device_rpc_header_read kind' (fci_device_rpc_header_write kind h ++ payload) =
     Err WL_RPC_ERR_MALFORMED_METADATA) /\
  (forall n, (n < 20)%nat ->
   fci_device_rpc_header_read kind (take n (fci_device_rpc_header_write kind h)) =
     Err WL_RPC_ERR_MALFORMED_METADATA).
Proof.
  intros Hok.
  assert (length (fci_device_rpc_header_write kind h) = 20%nat) as Hlen by done.
  assert ((length (fci_device_rpc_header_write kind h ++ payload) <? 20)%nat = false) as Hlt
    by (apply Nat.ltb_ge; rewrite length_app; lia).
  split; [done|]. split; [|split].
  - by apply header_read_write.
  - intros kind' Hne. unfold fci_device_rpc_header_read. rewrite Hlt.
    unfold fci_device_rpc_header_write. cbn [app nth].
    rewrite (proj2 (Z.eqb_neq kind kind')) by done. done.
  - intros n Hn. unfold fci_device_rpc_header_read.
    replace (_ <? 20)%nat with true; [done|]. symmetry. apply Nat.ltb_lt.
    rewrite length_take. lia.
Qed.

(** ** Calls *)

Lemma encode_sound d m capacity n payload :
  In d fci_descs -> valid d m = true -> wlc_encode d m capacity = (Ok n, payload) ->
  Z.of_nat (length payload) <= capacity /\
  forall old, wlc_decode d payload old = (WL_CODEC_OK, canon d m).
Proof.
  intros [Hwf _]%desc_wf Hv. unfold wlc_encode.
  destruct (wlc_measure d m) as [k|] eqn:Hm; [|done].
  destruct (Z.ltb_spec capacity k); [done|].
  rewrite (emit_cursor d m k Hwf Hv Hm). intros [= _ <-].
  destruct (measure_enc false d Hwf m k Hv Hm) as [Hk _]. split; [lia|].
  intros old. by eapply decode_enc.
Qed.

Section calls.
Context {W : Type} `{Link W}.

Lemma message_send_ok d id m reliable now w r w' :
  message_send d id m reliable now w = (r, w') -> sent_domain r = FCI_DEVICE_SEND_OK ->
  exists capacity w1 payload n handle,
    wl_tx_payload_claim id reliable w = (WL_OK, capacity, w1) /\
    wlc_encode d m capacity = (Ok n, payload) /\
    wl_tx_payload_commit payload now reliable w1 = (WL_OK, handle, w') /\
    sent_handle r = (if reliable then handle else 0).
Proof.
  unfold message_send. destruct (wl_tx_payload_claim id reliable w) as [[core capacity] w1] eqn:Hc.
  destruct (decide (core = WL_OK)) as [->|]; [|by intros [= <- _]].
  destruct (wlc_encode d m capacity) as [[n|e] payload] eqn:He; [|by intros [= <- _]].
  destruct (wl_tx_payload_commit payload now reliable w1) as [[core handle] w2] eqn:Hm.
  destruct (decide (core = WL_OK)) as [->|]; [|by intros [= <- _]].
  intros [= <- <-] _. by exists capacity, w1, payload, n, handle.
Qed.

Lemma finish_start_ok id sent w r w' :
  client_finish_start id sent w = (r, w') -> rt_domain r = FCI_DEVICE_RUNTIME_OK ->
  sent_domain sent = FCI_DEVICE_SEND_OK /\ rt_operation_id r = id /\
  wl_rpc_client_bind_tx id (sent_handle sent) w = (WL_RPC_OK, w').
Proof.
  unfold client_finish_start. destruct (sent_domain sent).
  - destruct (wl_rpc_client_bind_tx _ _ _) as [e w1]. intros [= <- <-]. cbn.
    by destruct (decide (e = WL_RPC_OK)) as [->|].
  - destruct (wl_rpc_client_link_failed _ _ _) as [e w1]. destruct (decide _);
      [destruct (wl_rpc_client_release _ _)|]; by intros [= <- _].
  - destruct (wl_rpc_client_link_failed _ _ _) as [e w1]. destruct (decide _);
      [destruct (wl_rpc_client_release _ _)|]; by intros [= <- _].
Qed.

(** A managed call that starts sends one reliable message, and the message
    is the caller's request under the correlation id of the call: the payload
    decodes at the device to the request's members with that id, it fits the
    space the link gave, and the handle of the transmission is bound to the
    call that the returned id names. *)
Theorem rpc_call_sent c request timeout now (w w' : W) r :
  In (rpc_request c) fci_descs ->
  wire_int (rpc_request c) "operation_id" request = (false, 0) ->
  (forall id, in_u 32 id ->
    valid (rpc_request c) (set_scalar (rpc_request c) "operation_id" id request) = true) ->
  client_start c request timeout now w = (r, w') -> fci_device_runtime_result_ok r = true ->
  exists w1 w2 w3 capacity payload handle,
    let id := rt_operation_id r in
    wl_rpc_client_begin (rpc_request_id c) (rpc_response_id c) timeout now w = (WL_RPC_OK, id, w1) /\
    wl_tx_payload_claim (rpc_request_id c) true w1 = (WL_OK, capacity, w2) /\
    wl_tx_payload_commit payload now true w2 = (WL_OK, handle, w3) /\
    wl_rpc_client_bind_tx id handle w3 = (WL_RPC_OK, w') /\
    (in_u 32 id -> Z.of_nat (length payload) <= capacity /\
     forall old, wlc_decode (rpc_request c) payload old =
       (WL_CODEC_OK, canon (rpc_request c)
         (set_scalar (rpc_request c) "operation_id" id request))).
Proof.
  intros Hd Hid Hv. unfold client_start. rewrite Hid. cbn [andb].
  destruct (wl_rpc_client_begin _ _ _ _ w) as [[begun id] w1] eqn:Hb.
  destruct (decide (begun = WL_RPC_OK)) as [->|]; [|by intros [= <- _] Hok].
  destruct (message_send _ _ _ _ _ w1) as [sent w3] eqn:Hs.
  intros Hf Hok. unfold fci_device_runtime_result_ok in Hok. apply bool_decide_eq_true in Hok.
  destruct (finish_start_ok _ _ _ _ _ Hf Hok) as (Hsent & Hrid & Hbind).
  destruct (message_send_ok _ _ _ _ _ _ _ _ Hs Hsent)
    as (capacity & w2 & payload & n & handle & Hc & He & Hm & Hh).
  exists w1, w2, w3, capacity, payload, handle. cbv zeta. rewrite Hrid.
  split; [done|]. split; [done|]. split; [done|]. split; [by rewrite Hh in Hbind|].
  intros Hu. by eapply encode_sound; [|apply Hv|].
Qed.
End calls.

(** What an accepted response is. *)
Lemma client_decode_ok c client r response :
  client_decode c client = (r, response) -> fci_device_runtime_result_ok r = true ->
  rc_operation_id client <> 0 /\
  rc_request_message_id client = rpc_request_id c /\
  rc_response_message_id client = rpc_response_id c /\
  (rc_state client = WL_RPC_CLIENT_COMPLETED \/ rc_state client = WL_RPC_CLIENT_APPLICATION_ERROR) /\
  (exists data, rc_response_data client = Some data /\
     wlc_decode (rpc_response c) data (wlc_clear (rpc_response c) []) = (WL_CODEC_OK, response)) /\
  wire_int (rpc_response c) "operation_id" response = (true, rc_operation_id client) /\
  wire_int (rpc_response c) "status" response = (true, rc_application_status client).
Proof.
  unfold client_decode, fci_device_runtime_result_ok.
  destruct (Z.eqb_spec (rc_operation_id client) 0); [by intros [= <- _]|].
  destruct (Z.eqb_spec (rc_request_message_id client) (rpc_request_id c)); [|by intros [= <- _]].
  destruct (Z.eqb_spec (rc_response_message_id client) (rpc_response_id c)); [|by intros [= <- _]].
  cbn [negb orb]. intros Hdec Hok. apply bool_decide_eq_true in Hok.
  assert ((rc_state client = WL_RPC_CLIENT_COMPLETED \/
           rc_state client = WL_RPC_CLIENT_APPLICATION_ERROR) /\
          exists b data, rc_response_data client = Some (b :: data)) as [Hst (b & data & Hdata)].
  { destruct (rc_state client), (rc_response_data client) as [[|b data]|];
      try (by injection Hdec as <- _); split; eauto. }
  do 3 (split; [done|]). split; [done|].
  revert Hdec. rewrite Hdata.
  destruct (wlc_decode (rpc_response c) (b :: data) _) as [codec resp] eqn:Hd. intros Hdec.
  assert ((if decide (codec = WL_CODEC_OK) then
          let '(has_id, id) := wire_int (rpc_response c) "operation_id" resp in
          let '(has_status, status) := wire_int (rpc_response c) "status" resp in
          negb (negb has_id || negb (id =? rc_operation_id client) || negb has_status ||
             negb (status =? rc_application_status client)) else false) = true /\ resp = response)
    as [Hck ->].
  { destruct (wire_int _ "operation_id" resp) as [hi i], (wire_int _ "status" resp) as [hs st].
    destruct Hst as [Hst|Hst]; rewrite Hst in Hdec;
      (destruct (decide _); [|by injection Hdec as <- _]);
      (destruct (_ || _); injection Hdec as <- <-; [discriminate Hok|done]). }
  clear Hdec. destruct (decide (codec = WL_CODEC_OK)) as [->|]; [|done].
  destruct (wire_int (rpc_response c) "operation_id" response) as [hi i].
  destruct (wire_int (rpc_response c) "status" response) as [hs status].
  destruct hi; cbn in Hck; [|done]. destruct (Z.eqb_spec i (rc_operation_id client)) as [Hi|]; cbn in Hck; [|done].
  destruct hs; cbn in Hck; [|done].
  destruct (Z.eqb_spec status (rc_application_status client)) as [Hs|]; cbn in Hck; [|done].
  rewrite Hi, Hs. split; [|done]. by exists (b :: data).
Qed.

(** ** A concrete link

    Calls are numbered from 1 and never time out; messages are recorded. *)

Record wire_state := {
  wr_now : Z;
  wr_next : Z;
  wr_calls : list wl_rpc_client_result_t;
  wr_claim : Z * bool;
  wr_sent : list (Z * bytes * bool)
}.
Definition wire0 : wire_state :=
  {| wr_now := 0; wr_next := 1; wr_calls := []; wr_claim := (0, false); wr_sent := [] |}.

Definition set_calls (l : list wl_rpc_client_result_t) (w : wire_state) : wire_state :=
  {| wr_now := wr_now w; wr_next := wr_next w; wr_calls := l; wr_claim := wr_claim w;
     wr_sent := wr_sent w |}.
Definition remove_call (id : Z) (w : wire_state) : wire_state :=
  set_calls (List.filter (fun c => negb (rc_operation_id c =? id)) (wr_calls w)) w.

(** The peer answers a call. *)
Definition answer (id : Z) (st : wl_rpc_client_state) (status : Z) (data : bytes) (w : wire_state)
    : wire_state :=
  set_calls (map (fun c =>
    if rc_operation_id c =? id then
      {| rc_operation_id := id; rc_request_message_id := rc_request_message_id c;
         rc_response_message_id := rc_response_message_id c; rc_state := st;
         rc_application_status := status; rc_link_result := WL_OK; rc_runtime_error := WL_RPC_OK;
         rc_tx_handle := rc_tx_handle c; rc_response_data := Some data |}
    else c) (wr_calls w)) w.

Definition wire_begin (req resp timeout now : Z) (w : wire_state) : wl_rpc_err * Z * wire_state :=
  let id := if wr_next w =? 0 then 1 else wr_next w in
  (WL_RPC_OK, id,
   {| wr_now := wr_now w; wr_next := id + 1;
      wr_calls := {| rc_operation_id := id; rc_request_message_id := req;
        rc_response_message_id := resp; rc_state := WL_RPC_CLIENT_LINK_PENDING;
        rc_application_status := 0; rc_link_result := WL_OK; rc_runtime_error := WL_RPC_OK; rc_tx_handle := 0;
        rc_response_data := None |} :: wr_calls w;
      wr_claim := wr_claim w; wr_sent := wr_sent w |}).

#[export] Instance wire_link : Link wire_state := {|
  wl_endpoint_now := wr_now;
  wl_rpc_client_begin := wire_begin;
  wl_rpc_client_begin_with_id _ req resp timeout now w :=
    let '(r, _, w') := wire_begin req resp timeout now w in (r, w');
  wl_rpc_client_link_failed _ _ w := (WL_RPC_OK, w);
  wl_rpc_client_bind_tx _ _ w := (WL_RPC_OK, w);
  wl_rpc_client_get id w :=
    match List.find (fun c => rc_operation_id c =? id) (wr_calls w) with
    | Some c => Ok c
    | None => Err WL_RPC_ERR_NOT_FOUND
    end;
  wl_rpc_client_cancel id w := remove_call id w;
  wl_rpc_client_release id w := (WL_RPC_OK, remove_call id w);
  wl_tx_cancel _ w := w;
  wl_tx_payload_claim id reliable w :=
    (WL_OK, 2048,
     {| wr_now := wr_now w; wr_next := wr_next w; wr_calls := wr_calls w;
        wr_claim := (id, reliable); wr_sent := wr_sent w |});
  wl_tx_payload_abort w := w;
  wl_tx_payload_commit payload _ reliable w :=
    (WL_OK, 7,
     {| wr_now := wr_now w; wr_next := wr_next w; wr_calls := wr_calls w; wr_claim := wr_claim w;
        wr_sent := wr_sent w ++ [(fst (wr_claim w), payload, reliable)] |})
|}.

Definition sample_header : rpc_header := {| h_operation_id := 77; h_status := -5; h_session := 2 ^ 40 + 3 |}.

Lemma rpc_header_roundtrip_witness :
  fci_device_rpc_header_write 2 sample_header =
    [0; 2; 2; 0; 0; 0; 0; 77; 255; 255; 255; 251; 0; 0; 1; 0; 0; 0; 0; 3] /\
  fci_device_rpc_header_read 2 (fci_device_rpc_header_write 2 sample_header ++ [9; 9]) = Ok sample_header.
Proof.
  split; [by vm_compute|].
  assert (header_ok 2 sample_header) as Hok by (unfold header_ok, in_u, in_s; cbn; lia).
  exact (proj1 (proj2 (rpc_header_roundtrip 2 sample_header [9; 9] Hok))).
Defined.

Definition reboot_request : wstruct :=
  set_scalar reboot_request_desc "mode" 2 (wlc_clear reboot_request_desc []).

Lemma reboot_request_valid id :
  in_u 32 id -> valid reboot_request_desc (set_scalar reboot_request_desc "operation_id" id reboot_request) = true.
Proof.
  intros Hid%between_u_spec. unfold reboot_request. cbn. unfold valid_slot, valid_value. cbn.
  by rewrite Hid.
Qed.

Lemma rpc_call_sent_witness :
  wr_sent (snd (client_start reboot_rpc reboot_request 5000 0 wire0)) = [(28932, [8; 1; 16; 4], true)] /\
  exists w1 w2 w3 capacity payload handle,
    wl_rpc_client_begin 28932 28933 5000 0 wire0 = (WL_RPC_OK, 1, w1) /\
    wl_tx_payload_claim 28932 true w1 = (WL_OK, capacity, w2) /\
    wl_tx_payload_commit payload 0 true w2 = (WL_OK, handle, w3) /\
    wl_rpc_client_bind_tx 1 handle w3 =
      (WL_RPC_OK, snd (client_start reboot_rpc reboot_request 5000 0 wire0)) /\
    (in_u 32 1 -> Z.of_nat (length payload) <= capacity /\
     forall old, wlc_decode reboot_request_desc payload old =
       (WL_CODEC_OK, canon reboot_request_desc
         (set_scalar reboot_request_desc "operation_id" 1 reboot_request))).
Proof.
  split; [by vm_compute|].
  assert (In (rpc_request reboot_rpc) fci_descs) as Hin by in_descs.
  exact (rpc_call_sent reboot_rpc reboot_request 5000 0 wire0
    (snd (client_start reboot_rpc reboot_request 5000 0 wire0))
    (fst (client_start reboot_rpc reboot_request 5000 0 wire0)) Hin
    ltac:(vm_compute; reflexivity) reboot_request_valid
    ltac:(vm_compute; reflexivity) ltac:(vm_compute; reflexivity)).
Defined.
