(* ===== verification/UpgradeClient.v ===== *)
(** * The firmware upgrade client: data and operations

    [src/FciUpgradeClient.cpp] and [include/florid/detail/FciUpgradeClient.hpp],
    with the types of [include/florid/FirmwareUpdate.hpp].  The members that
    belong to the boot status query, to the reboot call and to the upload are
    grouped in a record each.  Public calls and the owner's passes are atomic
    under [m_mutex]; a call that waits ([bootStatus], [reboot]) is its part
    before the wait and its part after it.  Waking the owner ([m_notify]) and
    the waiters leaves no state.

    The link is the class of [FciRpc.v]; the bulk sender of the link library
    and its CRC are the class [BulkSender]. *)

From Stdlib Require Import String.
From S2P Require Import Prelude WlcWire WlcSchema WlcCodec WlcRoundtrip FciMessages DeviceTypes Endpoint FciRpc.

(** ** Data *)

Module UpdateError.
Inductive FirmwareUpdateError :=
| kNone | kNotConnected | kBusy | kInvalidArgument | kTimeout | kDeviceRejected | kProtocolError
| kTransportError | kCancelled | kIdentityMismatch | kProtocolMismatch.
End UpdateError.
Abbreviation FirmwareUpdateError := UpdateError.FirmwareUpdateError.
#[global] Instance FirmwareUpdateError_eq_dec : EqDecision FirmwareUpdateError.
Proof. solve_decision. Defined.

Module UploadState.
Inductive FirmwareUploadState :=
| kIdle | kQueued | kStarting | kUploading | kCancelling | kCompleted | kFailed | kCancelled.
End UploadState.
Abbreviation FirmwareUploadState := UploadState.FirmwareUploadState.
#[global] Instance FirmwareUploadState_eq_dec : EqDecision FirmwareUploadState.
Proof. solve_decision. Defined.

Record BootStatus := {
  bs_error : FirmwareUpdateError;
  bs_device_status : Z;
  bs_protocol_version : Z;
  bs_boot_state : Z;
  bs_write_alignment : Z;
  bs_max_chunk_size : Z;
  bs_bytes_written : Z;
  bs_active_transfer_id : Z;
  bs_recovery_reason : Z;
  bs_active_slot : Z;
  bs_confirmed_slot : Z;
  bs_pending_slot : Z;
  bs_slot0_address : Z;
  bs_slot0_size : Z;
  bs_slot1_address : Z;
  bs_slot1_size : Z
}.
Definition boot_failed (e : FirmwareUpdateError) (device_status : Z) : BootStatus := {|
  bs_error := e; bs_device_status := device_status; bs_protocol_version := 0; bs_boot_state := 0;
  bs_write_alignment := 0; bs_max_chunk_size := 0; bs_bytes_written := 0;
  bs_active_transfer_id := 0; bs_recovery_reason := 0; bs_active_slot := 0; bs_confirmed_slot := 0;
  bs_pending_slot := 0; bs_slot0_address := 0; bs_slot0_size := 0; bs_slot1_address := 0;
  bs_slot1_size := 0 |}.

(** [FirmwareRebootMode]; a caller may pass any value of the enumeration's type. *)
Definition kNormal : Z := 0.
Definition kTryBoot : Z := 2.

Record FirmwareRebootResult := {
  rr_error : FirmwareUpdateError;
  rr_device_status : Z;
  rr_request_accepted : bool;
  rr_departure_observed : bool
}.
Definition reboot_result (e : FirmwareUpdateError) : FirmwareRebootResult := {|
  rr_error := e; rr_device_status := 0; rr_request_accepted := false;
  rr_departure_observed := false |}.

Record FirmwareUploadOptions := {
  uo_timeout : Z;
  uo_status_timeout_ms : Z;
  uo_busy_retry_ms : Z;
  uo_max_retries : Z
}.

Record FirmwareUploadProgress := {
  fp_state : FirmwareUploadState;
  fp_error : FirmwareUpdateError;
  fp_device_status : Z;
  fp_total_bytes : Z;
  fp_acknowledged_bytes : Z;
  fp_transfer_id : Z;
  fp_retries : Z;
  fp_busy_responses : Z
}.
Definition active (p : FirmwareUploadProgress) : bool :=
  match fp_state p with
  | UploadState.kQueued | UploadState.kStarting | UploadState.kUploading | UploadState.kCancelling =>
      true
  | _ => false
  end.

(** ** The bulk sender *)

Record wl_bulk_descriptor_t := {
  bd_transfer_id : Z; bd_total_length : Z; bd_requested_chunk_size : Z; bd_object_crc32c : Z
}.
Record wl_bulk_status_t := {
  bu_transfer_id : Z; bu_phase : Z; bu_code : Z; bu_next_offset : Z; bu_accepted_chunk_size : Z
}.
Inductive wl_bulk_sender_state :=
| WL_BULK_SENDER_RUNNING | WL_BULK_SENDER_COMPLETED | WL_BULK_SENDER_ABORTED | WL_BULK_SENDER_FAILED.
#[global] Instance wl_bulk_sender_state_eq_dec : EqDecision wl_bulk_sender_state.
Proof. solve_decision. Defined.
Record wl_bulk_sender_result_t := {
  br_state : wl_bulk_sender_state; br_next_offset : Z; br_status : Z
}.
Inductive wl_bulk_phase :=
| WL_BULK_PHASE_BEGIN | WL_BULK_PHASE_CHUNK | WL_BULK_PHASE_END | WL_BULK_PHASE_ABORT
| WL_BULK_PHASE_OTHER.
Record wl_bulk_sender_action_t := {
  ba_phase : wl_bulk_phase;
  ba_descriptor : wl_bulk_descriptor_t;
  ba_offset : Z;
  ba_length : Z;
  ba_abort_reason : Z
}.

Class BulkSender (S : Type) := {
  wl_bulk_sender_zero : S;
  wl_bulk_sender_init : Z -> Z -> Z -> S -> S;
  wl_bulk_sender_start : wl_bulk_descriptor_t -> S -> bool * S;
  wl_bulk_sender_on_status : wl_bulk_status_t -> Z -> S -> S;
  wl_bulk_sender_poll : Z -> S -> S;
  wl_bulk_sender_get_result : S -> wl_bulk_sender_result_t;
  wl_bulk_sender_get_stats : S -> Z * Z;
  wl_bulk_sender_request_abort : wl_result -> S -> S;
  wl_bulk_sender_action_acquire : S -> option wl_bulk_sender_action_t * S;
  wl_bulk_sender_action_submitted : wl_bulk_sender_action_t -> Z -> S -> S;
  wl_bulk_sender_action_defer : wl_bulk_sender_action_t -> S -> S;
  wl_crc32c : bytes -> Z
}.

(** ** The client *)

Record BootQuery := {
  bq_id : Z; bq_since_ms : Z; bq_timeout_ms : Z; bq_pending : bool; bq_done : bool;
  bq_result : BootStatus;
  bq_calling : bool  (* [m_boot_call_mutex] *)
}.
Record RebootCall := {
  rb_id : Z; rb_since_ms : Z; rb_timeout_ms : Z; rb_mode : Z; rb_pending : bool; rb_done : bool;
  rb_result : FirmwareRebootResult;
  rb_calling : bool  (* [m_reboot_call_mutex] *)
}.
Record Upload (S : Type) := {
  up_sender : S;
  up_image : bytes;
  up_options : FirmwareUploadOptions;
  up_progress : FirmwareUploadProgress;
  up_crc : Z;
  up_start_id : Z;
  up_since_ms : Z;
  up_cancel : bool
}.
Arguments up_sender {S}. Arguments up_image {S}. Arguments up_options {S}. Arguments up_progress {S}.
Arguments up_crc {S}. Arguments up_start_id {S}. Arguments up_since_ms {S}. Arguments up_cancel {S}.

Record FciUpgradeClient (S : Type) := {
  uc_boot : BootQuery;
  uc_reboot : RebootCall;
  uc_upload : Upload S;
  uc_running : bool;
  uc_transport_connected : bool;
  uc_verifying : bool;
  uc_peer_session : Z
}.
Arguments uc_boot {S}. Arguments uc_reboot {S}. Arguments uc_upload {S}. Arguments uc_running {S}.
Arguments uc_transport_connected {S}. Arguments uc_verifying {S}. Arguments uc_peer_session {S}.

Definition boot0 : BootQuery := {|
  bq_id := 0; bq_since_ms := 0; bq_timeout_ms := 0; bq_pending := false; bq_done := false;
  bq_result := boot_failed UpdateError.kNone 0; bq_calling := false |}.
Definition reboot0 : RebootCall := {|
  rb_id := 0; rb_since_ms := 0; rb_timeout_ms := 0; rb_mode := kTryBoot; rb_pending := false;
  rb_done := false; rb_result := reboot_result UpdateError.kNone; rb_calling := false |}.
Definition progress_of (st : FirmwareUploadState) (total : Z) : FirmwareUploadProgress := {|
  fp_state := st; fp_error := UpdateError.kNone; fp_device_status := 0; fp_total_bytes := total;
  fp_acknowledged_bytes := 0; fp_transfer_id := 0; fp_retries := 0; fp_busy_responses := 0 |}.
Definition options0 : FirmwareUploadOptions := {|
  uo_timeout := 120000; uo_status_timeout_ms := 3000; uo_busy_retry_ms := 10; uo_max_retries := 10 |}.

(** ** Helpers *)

(** [s_elapsed] of [FciUpgradeClient.cpp]. *)
Definition upgrade_elapsed (now since : Z) : Z :=
  let delta := swrap 32 (u32 (now - since)) in if delta <? 0 then 0 else u32 delta.

Definition s_retryable (r : fci_device_runtime_result_t) : bool :=
  (bool_decide (rt_domain r = FCI_DEVICE_RUNTIME_CORE_ERROR) &&
   (bool_decide (rt_core_result r = WL_ERR_BUSY) || bool_decide (rt_core_result r = WL_ERR_WOULD_BLOCK)))
  || (bool_decide (rt_domain r = FCI_DEVICE_RUNTIME_RPC_ERROR) &&
      bool_decide (rt_rpc_result r = WL_RPC_ERR_NO_SLOT)).

(** The functions that check a [std::chrono::milliseconds] argument. *)
Definition valid_timeout (t : Z) : bool := (t >? 0) && (t <? 2147483648).

Section client.
Context {W : Type} `{Link W} {S : Type} `{BulkSender S}.

Abbreviation client := (FciUpgradeClient S).

Definition client0 : client := {|
  uc_boot := boot0; uc_reboot := reboot0;
  uc_upload := {| up_sender := wl_bulk_sender_zero; up_image := []; up_options := options0;
    up_progress := progress_of UploadState.kIdle 0; up_crc := 0; up_start_id := 0; up_since_ms := 0;
    up_cancel := false |};
  uc_running := false; uc_transport_connected := true; uc_verifying := false; uc_peer_session := 0 |}.

Definition with_boot (q : BootQuery) (u : client) : client := {|
  uc_boot := q; uc_reboot := uc_reboot u; uc_upload := uc_upload u; uc_running := uc_running u;
  uc_transport_connected := uc_transport_connected u; uc_verifying := uc_verifying u;
  uc_peer_session := uc_peer_session u |}.
Definition with_reboot (r : RebootCall) (u : client) : client := {|
  uc_boot := uc_boot u; uc_reboot := r; uc_upload := uc_upload u; uc_running := uc_running u;
  uc_transport_connected := uc_transport_connected u; uc_verifying := uc_verifying u;
  uc_peer_session := uc_peer_session u |}.
Definition with_upload (p : Upload S) (u : client) : client := {|
  uc_boot := uc_boot u; uc_reboot := uc_reboot u; uc_upload := p; uc_running := uc_running u;
  uc_transport_connected := uc_transport_connected u; uc_verifying := uc_verifying u;
  uc_peer_session := uc_peer_session u |}.
Definition with_flags (running connected verifying : bool) (peer : Z) (u : client) : client := {|
  uc_boot := uc_boot u; uc_reboot := uc_reboot u; uc_upload := uc_upload u; uc_running := running;
  uc_transport_connected := connected; uc_verifying := verifying; uc_peer_session := peer |}.

(** [active()] of the client. *)
Definition client_active (u : client) : bool :=
  active (up_progress (uc_upload u)) || rb_pending (uc_reboot u) || uc_verifying u.

(** [s_cancelRpc]; the caller clears the id. *)
Definition s_cancelRpc (id : Z) (w : W) : W :=
  if id =? 0 then w
  else
    match wl_rpc_client_get id w with
    | Err _ => w
    | Ok r =>
        let w := wl_rpc_client_cancel id w in
        let w := if rc_tx_handle r =? 0 then w else wl_tx_cancel (rc_tx_handle r) w in
        snd (wl_rpc_client_release id w)
    end.

(** ** The boot status query *)

Definition boot_finish (r : BootStatus) (q : BootQuery) : BootQuery := {|
  bq_id := 0; bq_since_ms := bq_since_ms q; bq_timeout_ms := bq_timeout_ms q; bq_pending := false;
  bq_done := true; bq_result := r; bq_calling := bq_calling q |}.
Definition boot_id (id : Z) (q : BootQuery) : BootQuery := {|
  bq_id := id; bq_since_ms := bq_since_ms q; bq_timeout_ms := bq_timeout_ms q;
  bq_pending := bq_pending q; bq_done := bq_done q; bq_result := bq_result q;
  bq_calling := bq_calling q |}.

Definition boot_field (info : wstruct) (name : string) : Z :=
  snd (wire_int boot_status_info_desc name info).
Definition boot_of_wire (info : wstruct) : BootStatus :=
  {| bs_error := UpdateError.kNone; bs_device_status := 0;
     bs_protocol_version := boot_field info "protocol_version"; bs_boot_state := boot_field info "boot_state";
     bs_write_alignment := boot_field info "write_align"; bs_max_chunk_size := boot_field info "max_chunk_size";
     bs_bytes_written := boot_field info "bytes_written";
     bs_active_transfer_id :=
       (let '(has, id) := wire_int boot_status_info_desc "active_transfer_id" info in
        if has : bool then id else 0);
     bs_recovery_reason := boot_field info "recovery_reason"; bs_active_slot := boot_field info "active_slot";
     bs_confirmed_slot := boot_field info "confirmed_slot"; bs_pending_slot := boot_field info "pending_slot";
     bs_slot0_address := boot_field info "slot0_address"; bs_slot0_size := boot_field info "slot0_size";
     bs_slot1_address := boot_field info "slot1_address"; bs_slot1_size := boot_field info "slot1_size" |}.

(** The result of a call that has ended. *)
Definition boot_response (c : wl_rpc_client_result_t) : BootStatus :=
  let '(decoded, response) := client_decode get_boot_status_rpc c in
  let '(has_info, info) := wire_msg get_boot_status_response_desc "info" response in
  let status := rc_application_status c in
  if decide (rc_state c = WL_RPC_CLIENT_TIMED_OUT) then boot_failed UpdateError.kTimeout status
  else if negb (status =? 0) then boot_failed UpdateError.kDeviceRejected status
  else if fci_device_runtime_result_ok decoded && has_info then boot_of_wire info
  else boot_failed UpdateError.kProtocolError status.

Definition s_pollBoot (now : Z) (q : BootQuery) (w : W) : BootQuery * W :=
  if negb (bq_pending q) then (q, w)
  else
    let age := upgrade_elapsed now (bq_since_ms q) in
    if age >=? bq_timeout_ms q then
      (boot_finish (boot_failed UpdateError.kTimeout 0) q, s_cancelRpc (bq_id q) w)
    else if bq_id q =? 0 then
      let '(r, w) := endpoint_start get_boot_status_rpc (wlc_clear get_boot_status_request_desc [])
        (u32 (bq_timeout_ms q - age)) w in
      if fci_device_runtime_result_ok r then (boot_id (rt_operation_id r) q, w)
      else if s_retryable r then (q, w)
      else (boot_finish (boot_failed UpdateError.kTransportError 0) q, w)
    else
      match client_inspect get_boot_status_rpc (bq_id q) w with
      | Err _ =>
          (boot_finish (boot_failed UpdateError.kProtocolError 0) q,
           snd (client_release get_boot_status_rpc (bq_id q) w))
      | Ok c =>
          if rpc_pending (rc_state c) then (q, w)
          else (boot_finish (boot_response c) q,
                snd (client_release get_boot_status_rpc (bq_id q) w))
      end.

(** ** The reboot call *)

Definition reboot_set (id : Z) (pending done : bool) (r : FirmwareRebootResult) (c : RebootCall)
    : RebootCall := {|
  rb_id := id; rb_since_ms := rb_since_ms c; rb_timeout_ms := rb_timeout_ms c; rb_mode := rb_mode c;
  rb_pending := pending; rb_done := done; rb_result := r; rb_calling := rb_calling c |}.
Definition reboot_finish (r : FirmwareRebootResult) (c : RebootCall) : RebootCall :=
  reboot_set 0 false true r c.
Definition reboot_error (e : FirmwareUpdateError) (r : FirmwareRebootResult) : FirmwareRebootResult := {|
  rr_error := e; rr_device_status := rr_device_status r;
  rr_request_accepted := rr_request_accepted r;
  rr_departure_observed := rr_departure_observed r |}.

Definition reboot_response (mode : Z) (c : wl_rpc_client_result_t) : FirmwareRebootResult :=
  let '(decoded, response) := client_decode reboot_rpc c in
  let '(has_mode, got) := wire_int reboot_response_desc "mode" response in
  let status := rc_application_status c in
  let result e accepted := {| rr_error := e; rr_device_status := status;
    rr_request_accepted := accepted; rr_departure_observed := false |} in
  if decide (rc_state c = WL_RPC_CLIENT_TIMED_OUT) then result UpdateError.kTimeout false
  else if negb (status =? 0) then result UpdateError.kDeviceRejected false
  else if fci_device_runtime_result_ok decoded && has_mode && (got =? mode)
  then result UpdateError.kNone true
  else result UpdateError.kProtocolError false.

Definition s_pollReboot (now : Z) (c : RebootCall) (w : W) : RebootCall * W :=
  if negb (rb_pending c) then (c, w)
  else
    let age := upgrade_elapsed now (rb_since_ms c) in
    if age >=? rb_timeout_ms c then
      (reboot_finish (reboot_error UpdateError.kTimeout (rb_result c)) c, s_cancelRpc (rb_id c) w)
    else if rr_request_accepted (rb_result c) then (c, w)
    else if rb_id c =? 0 then
      let request := set_scalar reboot_request_desc "mode" (rb_mode c)
        (wlc_clear reboot_request_desc []) in
      let '(r, w) := endpoint_start reboot_rpc request (u32 (rb_timeout_ms c - age)) w in
      if fci_device_runtime_result_ok r
      then (reboot_set (rt_operation_id r) true (rb_done c) (rb_result c) c, w)
      else if s_retryable r then (c, w)
      else (reboot_finish (reboot_result UpdateError.kTransportError) c, w)
    else
      match client_inspect reboot_rpc (rb_id c) w with
      | Err _ =>
          (reboot_finish (reboot_result UpdateError.kProtocolError) c,
           snd (client_release reboot_rpc (rb_id c) w))
      | Ok r =>
          if rpc_pending (rc_state r) then (c, w)
          else
            let result := reboot_response (rb_mode c) r in
            let w := snd (client_release reboot_rpc (rb_id c) w) in
            if rr_request_accepted result then (reboot_set 0 true (rb_done c) result c, w)
            else (reboot_finish result c, w)
      end.

(** ** The upload *)

Definition up_with_progress (p : FirmwareUploadProgress) (u : Upload S) : Upload S := {|
  up_sender := up_sender u; up_image := up_image u; up_options := up_options u; up_progress := p;
  up_crc := up_crc u; up_start_id := up_start_id u; up_since_ms := up_since_ms u;
  up_cancel := up_cancel u |}.
Definition up_with_sender (s : S) (u : Upload S) : Upload S := {|
  up_sender := s; up_image := up_image u; up_options := up_options u; up_progress := up_progress u;
  up_crc := up_crc u; up_start_id := up_start_id u; up_since_ms := up_since_ms u;
  up_cancel := up_cancel u |}.
Definition up_with_id (id : Z) (u : Upload S) : Upload S := {|
  up_sender := up_sender u; up_image := up_image u; up_options := up_options u;
  up_progress := up_progress u; up_crc := up_crc u; up_start_id := id;
  up_since_ms := up_since_ms u; up_cancel := up_cancel u |}.

Definition fp_with (st : FirmwareUploadState) (e : FirmwareUpdateError) (device_status : Z)
    (p : FirmwareUploadProgress) : FirmwareUploadProgress := {|
  fp_state := st; fp_error := e; fp_device_status := device_status;
  fp_total_bytes := fp_total_bytes p; fp_acknowledged_bytes := fp_acknowledged_bytes p;
  fp_transfer_id := fp_transfer_id p; fp_retries := fp_retries p;
  fp_busy_responses := fp_busy_responses p |}.
Definition fp_state_set (st : FirmwareUploadState) (p : FirmwareUploadProgress) :=
  fp_with st (fp_error p) (fp_device_status p) p.
Definition fp_transfer (id : Z) (p : FirmwareUploadProgress) : FirmwareUploadProgress := {|
  fp_state := UploadState.kUploading; fp_error := fp_error p; fp_device_status := fp_device_status p;
  fp_total_bytes := fp_total_bytes p; fp_acknowledged_bytes := fp_acknowledged_bytes p;
  fp_transfer_id := id; fp_retries := fp_retries p; fp_busy_responses := fp_busy_responses p |}.
Definition fp_counters (acknowledged retries busy : Z) (p : FirmwareUploadProgress)
    : FirmwareUploadProgress := {|
  fp_state := fp_state p; fp_error := fp_error p; fp_device_status := fp_device_status p;
  fp_total_bytes := fp_total_bytes p; fp_acknowledged_bytes := acknowledged;
  fp_transfer_id := fp_transfer_id p; fp_retries := retries; fp_busy_responses := busy |}.

Definition finish_state (e : FirmwareUpdateError) : FirmwareUploadState :=
  match e with
  | UpdateError.kNone => UploadState.kCompleted
  | UpdateError.kCancelled => UploadState.kCancelled
  | _ => UploadState.kFailed
  end.

Definition s_finish (e : FirmwareUpdateError) (u : Upload S) : Upload S := {|
  up_sender := up_sender u; up_image := []; up_options := up_options u;
  up_progress := fp_with (finish_state e) e (fp_device_status (up_progress u)) (up_progress u);
  up_crc := up_crc u; up_start_id := up_start_id u; up_since_ms := up_since_ms u;
  up_cancel := up_cancel u |}.

Definition IMAGE_APPLICATION : Z := 0.
Definition SLOT_SECONDARY : Z := 2.

(** The [start_upgrade] request of [s_pollStart]. *)
Definition start_image_version : wstruct :=
  let d := image_version_desc in
  set_scalar d "build" 0 (set_scalar d "revision" 0 (set_scalar d "minor" 0
    (set_scalar d "major" 0 (wlc_clear d [])))).
Definition start_request (size crc : Z) : wstruct :=
  let d := start_upgrade_request_desc in
  set_scalar d "image_crc32c" crc (set_scalar d "image_size" size
    (wire_set d "image_version" (SOpt true (VMsg start_image_version))
    (set_scalar d "flags" 0 (set_scalar d "target_slot" SLOT_SECONDARY
    (set_scalar d "image_id" IMAGE_APPLICATION (wlc_clear d [])))))).

(** The transfer that a response admits: its id and chunk size. *)
Definition start_admits (response : wstruct) : option (Z * Z) :=
  let d := start_upgrade_response_desc in
  let '(has_id, id) := wire_int d "transfer_id" response in
  let '(has_align, align) := wire_int d "write_align" response in
  let '(has_chunk, chunk) := wire_int d "max_chunk_size" response in
  let '(has_next, next) := wire_int d "next_offset" response in
  if negb has_id || (id =? 0) || negb has_align || (align =? 0) ||
     negb (Z.land align (align - 1) =? 0) || negb has_chunk || (chunk <? align) || (chunk >? 2031) ||
     negb (chunk mod align =? 0) || (has_next && negb (next =? 0))
  then None else Some (id, chunk).

Definition s_pollStart (now : Z) (u : Upload S) (w : W) : Upload S * W :=
  if up_start_id u =? 0 then
    let request := start_request (Z.of_nat (length (up_image u))) (up_crc u) in
    let remaining := u32 (u32 (uo_timeout (up_options u)) - upgrade_elapsed now (up_since_ms u)) in
    let '(r, w) := endpoint_start start_upgrade_rpc request remaining w in
    if fci_device_runtime_result_ok r then
      (up_with_progress (fp_state_set UploadState.kStarting (up_progress u))
         (up_with_id (rt_operation_id r) u), w)
    else if s_retryable r then (u, w)
    else (s_finish UpdateError.kTransportError u, w)
  else
    match client_inspect start_upgrade_rpc (up_start_id u) w with
    | Err _ =>
        (up_with_id 0 (s_finish UpdateError.kProtocolError u), s_cancelRpc (up_start_id u) w)
    | Ok c =>
        if rpc_pending (rc_state c) then (u, w)
        else
          let '(decoded, response) := client_decode start_upgrade_rpc c in
          let w := snd (client_release start_upgrade_rpc (up_start_id u) w) in
          let status := rc_application_status c in
          let p := up_progress u in
          let u := up_with_progress (fp_with (fp_state p) (fp_error p) status p) (up_with_id 0 u) in
          if negb (status =? 0) then (s_finish UpdateError.kDeviceRejected u, w)
          else
            match (if fci_device_runtime_result_ok decoded then start_admits response else None) with
            | None =>
                (s_finish (if decide (rc_state c = WL_RPC_CLIENT_TIMED_OUT) then UpdateError.kTimeout
                           else UpdateError.kProtocolError) u, w)
            | Some (id, chunk) =>
                let o := up_options u in
                let sender := wl_bulk_sender_init (uo_status_timeout_ms o) (uo_busy_retry_ms o)
                  (uo_max_retries o) (up_sender u) in
                let '(ok, sender) := wl_bulk_sender_start {| bd_transfer_id := id;
                  bd_total_length := Z.of_nat (length (up_image u)); bd_requested_chunk_size := chunk;
                  bd_object_crc32c := up_crc u |} sender in
                let u := up_with_sender sender u in
                if ok : bool
                then (up_with_progress (fp_transfer id (up_progress u)) u, w)
                else (s_finish UpdateError.kProtocolError u, w)
            end
    end.

(** [s_status], the handler of a bulk status message. *)
Definition s_status (message : wstruct) (clock : Z) (u : Upload S) : Upload S :=
  match fp_state (up_progress u) with
  | UploadState.kUploading | UploadState.kCancelling =>
      let d := bulk_status_desc in
      let status := {| bu_transfer_id := snd (wire_int d "transfer_id" message);
        bu_phase := snd (wire_int d "phase" message); bu_code := snd (wire_int d "code" message);
        bu_next_offset := snd (wire_int d "next_offset" message);
        bu_accepted_chunk_size := snd (wire_int d "accepted_chunk_size" message) |} in
      up_with_sender (wl_bulk_sender_on_status status clock (up_sender u)) u
  | _ => u
  end.

(** The message of an action, with its table, id and delivery. *)
Definition action_message (image : bytes) (a : wl_bulk_sender_action_t)
    : option (wlc_desc * Z * wstruct * bool) :=
  let t := ba_descriptor a in
  match ba_phase a with
  | WL_BULK_PHASE_BEGIN =>
      let d := bulk_begin_desc in
      Some (d, 28704, set_scalar d "object_crc32c" (bd_object_crc32c t)
        (set_scalar d "requested_chunk_size" (bd_requested_chunk_size t)
        (set_scalar d "total_length" (bd_total_length t)
        (set_scalar d "transfer_id" (bd_transfer_id t) (wlc_clear d [])))), true)
  | WL_BULK_PHASE_CHUNK =>
      let d := bulk_chunk_desc in
      Some (d, 28705,
        wire_set d "data" (SOpt true (VSpan
          (Some (take (Z.to_nat (ba_length a)) (drop (Z.to_nat (ba_offset a)) image)))
          (ba_length a)))
        (set_scalar d "offset" (ba_offset a)
        (set_scalar d "transfer_id" (bd_transfer_id t) (wlc_clear d []))), false)
  | WL_BULK_PHASE_END =>
      let d := bulk_end_desc in
      Some (d, 28706, set_scalar d "object_crc32c" (bd_object_crc32c t)
        (set_scalar d "total_length" (bd_total_length t)
        (set_scalar d "transfer_id" (bd_transfer_id t) (wlc_clear d []))), true)
  | WL_BULK_PHASE_ABORT =>
      let d := bulk_abort_desc in
      Some (d, 28707, set_scalar d "reason" (ba_abort_reason a)
        (set_scalar d "transfer_id" (bd_transfer_id t) (wlc_clear d [])), true)
  | WL_BULK_PHASE_OTHER => None
  end.

(** The last part of [s_progress]: acquire an action and send its message. *)
Definition send_action (now : Z) (u : Upload S) (w : W) : Upload S * W :=
  let '(acquired, sender) := wl_bulk_sender_action_acquire (up_sender u) in
  match acquired with
  | None => (up_with_sender sender u, w)
  | Some a =>
      match action_message (up_image u) a with
      | None =>
          (s_finish UpdateError.kProtocolError
             (up_with_sender (wl_bulk_sender_action_defer a sender) u), w)
      | Some (d, id, message, reliable) =>
          let '(sent, w) := message_send d id message reliable
            (if reliable : bool then wl_endpoint_now w else 0) w in
          (up_with_sender
             (if decide (sent_domain sent = FCI_DEVICE_SEND_OK)
              then wl_bulk_sender_action_submitted a now sender
              else wl_bulk_sender_action_defer a sender) u, w)
      end
  end.

(** A transfer that is running: abort, poll the sender, take its result. *)
Definition pump_transfer (now : Z) (u : Upload S) (w : W) : Upload S * W :=
  let u :=
    if up_cancel u && negb (bool_decide (fp_state (up_progress u) = UploadState.kCancelling)) then
      up_with_progress (fp_state_set UploadState.kCancelling (up_progress u))
        (up_with_sender (wl_bulk_sender_request_abort WL_ERR_CANCELLED (up_sender u)) u)
    else u in
  let sender := wl_bulk_sender_poll now (up_sender u) in
  let r := wl_bulk_sender_get_result sender in
  let '(retries, busy) := wl_bulk_sender_get_stats sender in
  let u := up_with_progress (fp_counters (br_next_offset r) retries busy (up_progress u))
    (up_with_sender sender u) in
  let p := up_progress u in
  match br_state r with
  | WL_BULK_SENDER_COMPLETED => (s_finish UpdateError.kNone u, w)
  | WL_BULK_SENDER_ABORTED =>
      (s_finish (if decide (fp_error p = UpdateError.kNone) then UpdateError.kCancelled
                 else fp_error p) u, w)
  | WL_BULK_SENDER_FAILED =>
      if decide (fp_state p = UploadState.kCancelling)
      then (s_finish UpdateError.kTransportError u, w)
      else
        send_action now
          (up_with_progress
             (fp_with UploadState.kCancelling UpdateError.kProtocolError (br_status r) p)
             (up_with_sender (wl_bulk_sender_request_abort WL_ERR_IO (up_sender u)) u)) w
  | WL_BULK_SENDER_RUNNING => send_action now u w
  end.

(** [s_progress] after the two queries were polled. *)
Definition progress_upload (now : Z) (u : Upload S) (w : W) : Upload S * W :=
  if negb (active (up_progress u)) then (u, w)
  else if upgrade_elapsed now (up_since_ms u) >=? u32 (uo_timeout (up_options u)) then
    (s_finish UpdateError.kTimeout (up_with_id 0 u), s_cancelRpc (up_start_id u) w)
  else
    match fp_state (up_progress u) with
    | UploadState.kQueued =>
        if up_cancel u then (s_finish UpdateError.kCancelled u, w) else s_pollStart now u w
    | UploadState.kStarting => s_pollStart now u w
    | _ => pump_transfer now u w
    end.

(** [s_progress], the owner's pass. *)
Definition upgrade_progress (now : Z) (u : client) (w : W) : client * W :=
  let '(q, w) := s_pollBoot now (uc_boot u) w in
  let '(r, w) := s_pollReboot now (uc_reboot u) w in
  let '(p, w) := progress_upload now (uc_upload u) w in
  (with_upload p (with_reboot r (with_boot q u)), w).

Definition deadline_hint (u : client) : Z :=
  if active (up_progress (uc_upload u)) || bq_pending (uc_boot u) || rb_pending (uc_reboot u)
  then 10 else 4294967295.

(** ** Connection events *)

Definition reboot_departed (departed : bool) (c : RebootCall) : RebootCall :=
  let r := rb_result c in
  reboot_finish
    {| rr_error := if departed && rr_request_accepted r then UpdateError.kNone
         else UpdateError.kTransportError;
       rr_device_status := rr_device_status r; rr_request_accepted := rr_request_accepted r;
       rr_departure_observed := departed |} c.

(** [clock]: [s_now()]. *)
Definition disconnected (departed : bool) (clock : Z) (u : client) (w : W) : client * W :=
  let '(r, w) :=
    if rb_pending (uc_reboot u) && negb (rb_id (uc_reboot u) =? 0)
    then s_pollReboot clock (uc_reboot u) w else (uc_reboot u, w) in
  let w := s_cancelRpc (rb_id r) (s_cancelRpc (up_start_id (uc_upload u))
    (s_cancelRpc (bq_id (uc_boot u)) w)) in
  let p := up_with_id 0 (uc_upload u) in
  let p := if active (up_progress p) then s_finish UpdateError.kTransportError p else p in
  let q := if bq_pending (uc_boot u)
    then boot_finish (boot_failed UpdateError.kTransportError 0) (uc_boot u)
    else boot_id 0 (uc_boot u) in
  let r := if rb_pending r then reboot_departed departed r
    else reboot_set 0 false (rb_done r) (rb_result r) r in
  (with_upload p (with_reboot r (with_boot q u)), w).

Definition connected (running : bool) (u : client) : client :=
  with_flags running (uc_transport_connected u) (uc_verifying u) (uc_peer_session u) u.

Definition transportState (now_connected : bool) (clock : Z) (u : client) (w : W) : client * W :=
  let departed := uc_transport_connected u && negb now_connected in
  let u := with_flags (uc_running u) now_connected (uc_verifying u) (uc_peer_session u) u in
  if departed : bool then disconnected true clock u w else (u, w).

(** [on_peer_session] and [on_close] of the service. *)
Definition on_peer_session (previous current clock : Z) (u : client) (w : W) : client * W :=
  let u := with_flags (uc_running u) (uc_transport_connected u) (uc_verifying u) current u in
  if negb (previous =? 0) then disconnected true clock u w else (u, w).
Definition on_close (clock : Z) (u : client) (w : W) : client * W := disconnected false clock u w.

(** ** Public calls *)

Definition busy (verification : bool) (u : client) : bool :=
  active (up_progress (uc_upload u)) || rb_pending (uc_reboot u) ||
  (uc_verifying u && negb verification).

Definition beginVerification (u : client) : FirmwareUpdateError * client :=
  if negb (uc_running u) then (UpdateError.kNotConnected, u)
  else if busy false u then (UpdateError.kBusy, u)
  else (UpdateError.kNone,
        with_flags (uc_running u) (uc_transport_connected u) true (uc_peer_session u) u).

Definition endVerification (u : client) : client :=
  with_flags (uc_running u) (uc_transport_connected u) false (uc_peer_session u) u.

Definition boot_calling (b : bool) (q : BootQuery) : BootQuery := {|
  bq_id := bq_id q; bq_since_ms := bq_since_ms q; bq_timeout_ms := bq_timeout_ms q;
  bq_pending := bq_pending q; bq_done := bq_done q; bq_result := bq_result q; bq_calling := b |}.

(** [bootStatus] up to its wait: a result, or [None] when it waits. *)
Definition bootStatus_begin (timeout clock : Z) (u : client) : option BootStatus * client :=
  let q := uc_boot u in
  let fail e := (Some (boot_failed e 0), u) in
  if bq_calling q then fail UpdateError.kBusy
  else if negb (valid_timeout timeout) then fail UpdateError.kInvalidArgument
  else if negb (uc_running u) then fail UpdateError.kNotConnected
  else if bq_pending q then fail UpdateError.kBusy
  else
    (None, with_boot {| bq_id := bq_id q; bq_since_ms := clock; bq_timeout_ms := u32 timeout;
       bq_pending := true; bq_done := false; bq_result := bq_result q; bq_calling := true |} u).

(** Its end: the wait saw [m_boot_done] or ran out. *)
Definition bootStatus_end (u : client) : BootStatus * client :=
  let q := uc_boot u in
  (if bq_done q then bq_result q else boot_failed UpdateError.kTimeout 0,
   with_boot (boot_calling false q) u).

Definition startUpload (image : bytes) (o : FirmwareUploadOptions) (clock : Z) (u : client)
    : FirmwareUpdateError * client :=
  if match image with [] => true | _ => false end || negb (valid_timeout (uo_timeout o)) ||
     (uo_status_timeout_ms o =? 0) || (uo_status_timeout_ms o >=? 2147483648) ||
     (uo_busy_retry_ms o =? 0) || (uo_busy_retry_ms o >=? 2147483648)
  then (UpdateError.kInvalidArgument, u)
  else if negb (uc_running u) then (UpdateError.kNotConnected, u)
  else if busy false u then (UpdateError.kBusy, u)
  else
    (UpdateError.kNone,
     with_upload {| up_sender := up_sender (uc_upload u); up_image := image; up_options := o;
       up_progress := progress_of UploadState.kQueued (Z.of_nat (length image));
       up_crc := wl_crc32c (S := S) image; up_start_id := up_start_id (uc_upload u);
       up_since_ms := clock; up_cancel := false |} u).

Definition reboot_begin (mode timeout : Z) (verification : bool) (clock : Z) (u : client)
    : option FirmwareRebootResult * client :=
  let c := uc_reboot u in
  let fail e := (Some (reboot_result e), u) in
  if rb_calling c then fail UpdateError.kBusy
  else if (negb (mode =? kNormal) && negb (mode =? kTryBoot)) || negb (valid_timeout timeout)
  then fail UpdateError.kInvalidArgument
  else if negb (uc_running u) then fail UpdateError.kNotConnected
  else if busy verification u then fail UpdateError.kBusy
  else
    (None, with_reboot {| rb_id := rb_id c; rb_since_ms := clock; rb_timeout_ms := u32 timeout;
       rb_mode := mode; rb_pending := true; rb_done := false;
       rb_result := reboot_result UpdateError.kNone; rb_calling := true |} u).

Definition reboot_end (u : client) : FirmwareRebootResult * client :=
  let c := uc_reboot u in
  (if rb_done c then rb_result c else reboot_error UpdateError.kTimeout (rb_result c),
   with_reboot {| rb_id := rb_id c; rb_since_ms := rb_since_ms c; rb_timeout_ms := rb_timeout_ms c;
     rb_mode := rb_mode c; rb_pending := rb_pending c; rb_done := rb_done c;
     rb_result := rb_result c; rb_calling := false |} u).

Definition cancel (u : client) : client :=
  let p := uc_upload u in
  if active (up_progress p) then
    with_upload {| up_sender := up_sender p; up_image := up_image p; up_options := up_options p;
      up_progress := up_progress p; up_crc := up_crc p; up_start_id := up_start_id p;
      up_since_ms := up_since_ms p; up_cancel := true |} u
  else u.

Definition progress (u : client) : FirmwareUploadProgress := up_progress (uc_upload u).
End client.
