(* ===== verification/UpgradeProps.v ===== *)
(** * The firmware upgrade client: theorems

    The client of [UpgradeClient.v] as a state machine: public calls, events of
    the connection and passes of the owner, in any order, while the link
    changes as it likes.  The theorems hold in every reachable state. *)

From Stdlib Require Import String.
From S2P Require Import Prelude WlcWire WlcSchema WlcCodec WlcRoundtrip FciMessages FciApi FciProperties FciSizes DeviceTypes.
From S2P Require Import Endpoint EndpointOps EndpointInv FciRpc UpgradeClient.

(** ** Steps *)

Inductive upgrade_event :=
| EvConnected (running : bool)
| EvTransport (now_connected : bool) (clock : Z)
| EvPeer (previous current clock : Z)
| EvClose (clock : Z)
| EvBeginVerification
| EvEndVerification
| EvBootBegin (timeout clock : Z)
| EvBootEnd
| EvUpload (image : bytes) (o : FirmwareUploadOptions) (clock : Z)
| EvReboot (mode timeout : Z) (verification : bool) (clock : Z)
| EvRebootEnd
| EvCancel
| EvStatus (message : wstruct) (clock : Z)
| EvPass (now : Z).

Section upgrade.
Context {W : Type} `{Link W} {S : Type} `{BulkSender S}.

Abbreviation client := (FciUpgradeClient S).

Definition apply_event (ev : upgrade_event) (u : client) (w : W) : client * W :=
  match ev with
  | EvConnected b => (connected b u, w)
  | EvTransport b clock => transportState b clock u w
  | EvPeer previous current clock => on_peer_session previous current clock u w
  | EvClose clock => on_close clock u w
  | EvBeginVerification => (snd (beginVerification u), w)
  | EvEndVerification => (endVerification u, w)
  | EvBootBegin timeout clock => (snd (bootStatus_begin timeout clock u), w)
  | EvBootEnd => (snd (bootStatus_end u), w)
  | EvUpload image o clock => (snd (startUpload image o clock u), w)
  | EvReboot mode timeout verification clock =>
      (snd (reboot_begin mode timeout verification clock u), w)
  | EvRebootEnd => (snd (reboot_end u), w)
  | EvCancel => (cancel u, w)
  | EvStatus message clock => (with_upload (s_status message clock (uc_upload u)) u, w)
  | EvPass now => upgrade_progress now u w
  end.

(** ** Invariants of the parts *)

Record boot_inv (q : BootQuery) : Prop := {
  bi_idle : bq_pending q = false -> bq_id q = 0;
  bi_pending : bq_pending q = true -> bq_done q = false
}.

Record reboot_inv (n : nat) (c : RebootCall) : Prop := {
  ri_idle : rb_pending c = false -> rb_id c = 0;
  ri_pending : rb_pending c = true ->
    rb_done c = false /\ rr_error (rb_result c) = UpdateError.kNone /\
    rr_departure_observed (rb_result c) = false;
  ri_accepted : rr_request_accepted (rb_result c) = true -> rb_id c = 0;
  ri_sent : (n <= 1)%nat;
  ri_count : rb_pending c = true ->
    n = if rr_request_accepted (rb_result c) || negb (rb_id c =? 0) then 1%nat else 0%nat;
  ri_done : rb_done c = true ->
    (rr_error (rb_result c) = UpdateError.kNone <->
     rr_request_accepted (rb_result c) = true /\ rr_departure_observed (rb_result c) = true);
  ri_taken : rb_done c = true -> rr_request_accepted (rb_result c) = true -> n = 1%nat
}.

Record upload_inv (u : Upload S) : Prop := {
  ui_id : up_start_id u = 0 <-> fp_state (up_progress u) <> UploadState.kStarting;
  ui_image : active (up_progress u) = false -> up_image u = [];
  ui_total : active (up_progress u) = true ->
    up_image u <> [] /\ fp_total_bytes (up_progress u) = Z.of_nat (length (up_image u));
  ui_outcome : match fp_state (up_progress u) with
    | UploadState.kIdle | UploadState.kCompleted | UploadState.kQueued | UploadState.kStarting
    | UploadState.kUploading => fp_error (up_progress u) = UpdateError.kNone
    | UploadState.kCancelled => fp_error (up_progress u) = UpdateError.kCancelled
    | UploadState.kFailed =>
        fp_error (up_progress u) <> UpdateError.kNone /\
        fp_error (up_progress u) <> UpdateError.kCancelled
    | UploadState.kCancelling =>
        fp_error (up_progress u) = UpdateError.kNone \/
        fp_error (up_progress u) = UpdateError.kProtocolError
    end
}.

(** ** Polls *)

(** The link numbers its calls from 1 ([wirelink/rpc.h]: 0 is no operation). *)
Definition nonzero_ids : Prop := forall req resp timeout now (w w' : W) id,
  wl_rpc_client_begin req resp timeout now w = (WL_RPC_OK, id, w') -> id <> 0.
Hypothesis Hids : nonzero_ids.

Lemma start_nonzero c request timeout w r w' :
  wire_int (rpc_request c) "operation_id" request = (false, 0) ->
  endpoint_start c request timeout w = (r, w') -> fci_device_runtime_result_ok r = true ->
  rt_operation_id r <> 0.
Proof.
  unfold endpoint_start, client_start. intros ->. cbn [andb].
  destruct (wl_rpc_client_begin _ _ _ _ w) as [[begun id] w1] eqn:Hb.
  destruct (decide (begun = WL_RPC_OK)) as [->|]; [|by intros [= <- _] Hok].
  destruct (message_send _ _ _ _ _ w1) as [sent w3]. intros Hf Hok.
  apply bool_decide_eq_true in Hok.
  destruct (finish_start_ok _ _ _ _ _ Hf Hok) as (_ & -> & _). by eapply Hids.
Qed.

Lemma boot_finish_inv r q : boot_inv (boot_finish r q).
Proof. by split. Qed.

Lemma pollBoot_inv now q w q' w' :
  boot_inv q -> s_pollBoot now q w = (q', w') ->
  boot_inv q' /\ (bq_pending q = false -> q' = q) /\ bq_calling q' = bq_calling q.
Proof.
  intros Hq. unfold s_pollBoot. destruct (bq_pending q) eqn:Hp; cbn [negb]; [|by intros [= <- _]].
  destruct (_ >=? _); [intros [= <- _]; split; [apply boot_finish_inv|done]|].
  destruct (Z.eqb_spec (bq_id q) 0).
  - destruct (endpoint_start _ _ _ w) as [r w1]. destruct (fci_device_runtime_result_ok r).
    + intros [= <- _]. split; [|done]. split; cbn; intros Hx; [congruence|]. by apply bi_pending.
    + destruct (s_retryable r); intros [= <- _]; [done|]. split; [apply boot_finish_inv|done].
  - destruct (client_inspect _ _ w) as [c|e];
      [|intros [= <- _]; split; [apply boot_finish_inv|done]].
    destruct (rpc_pending _); intros [= <- _]; [done|]. split; [apply boot_finish_inv|done].
Qed.

Lemma reboot_finish_inv n r c :
  (n <= 1)%nat ->
  (rr_error r = UpdateError.kNone <-> rr_request_accepted r = true /\ rr_departure_observed r = true) ->
  (rr_request_accepted r = true -> n = 1%nat) ->
  reboot_inv n (reboot_finish r c).
Proof. intros Hn Hr Ha. by split. Qed.

Lemma reboot_failed_inv n e c :
  (n <= 1)%nat -> e <> UpdateError.kNone -> reboot_inv n (reboot_finish (reboot_result e) c).
Proof.
  intros Hn He. apply reboot_finish_inv; [done| |done]. split; [done|by intros [? _]].
Qed.

Lemma reboot_response_error mode c :
  rr_request_accepted (reboot_response mode c) = false ->
  rr_error (reboot_response mode c) <> UpdateError.kNone.
Proof.
  unfold reboot_response. destruct (client_decode _ _) as [d r], (wire_int _ _ _) as [hm got].
  destruct (decide _); [done|]. destruct (negb _); [done|]. by destruct (_ && _).
Qed.

Lemma reboot_response_fields mode c :
  rr_departure_observed (reboot_response mode c) = false /\
  (rr_request_accepted (reboot_response mode c) = true ->
   rr_error (reboot_response mode c) = UpdateError.kNone).
Proof.
  unfold reboot_response. destruct (client_decode _ _) as [d r], (wire_int _ _ _) as [hm got].
  destruct (decide _); [done|]. destruct (negb _); [done|]. by destruct (_ && _).
Qed.

(** *** The upload *)

Lemma s_finish_inv e u :
  up_start_id u = 0 -> upload_inv (s_finish e u).
Proof.
  intros Hid. split; cbn; try done.
  - rewrite Hid. split; [|done]. by destruct e.
  - by destruct e.
  - by destruct e; cbn.
Qed.

Lemma upload_sender_inv s u : upload_inv u -> upload_inv (up_with_sender s u).
Proof. by intros []. Qed.

(** An upload that goes on: nothing is outstanding but in [kStarting]. *)
Lemma upload_running_inv u :
  active (up_progress u) = true ->
  (up_start_id u = 0 <-> fp_state (up_progress u) <> UploadState.kStarting) ->
  up_image u <> [] -> fp_total_bytes (up_progress u) = Z.of_nat (length (up_image u)) ->
  (fp_error (up_progress u) = UpdateError.kNone \/
   fp_state (up_progress u) = UploadState.kCancelling /\
   fp_error (up_progress u) = UpdateError.kProtocolError) ->
  upload_inv u.
Proof.
  intros Ha Hid Hi Ht He. split; [done|by rewrite Ha|done|].
  unfold active in Ha. destruct (fp_state (up_progress u)); try done;
    by destruct He as [He|[Hst He]]; auto.
Qed.

Lemma upload_error u :
  upload_inv u -> active (up_progress u) = true ->
  fp_error (up_progress u) = UpdateError.kNone \/
  fp_state (up_progress u) = UploadState.kCancelling /\
  fp_error (up_progress u) = UpdateError.kProtocolError.
Proof.
  intros [_ _ _ Ho]. unfold active. destruct (fp_state (up_progress u)); try done; auto.
  destruct Ho; auto.
Qed.

Lemma pollStart_inv now u w u' w' :
  upload_inv u ->
  fp_state (up_progress u) = UploadState.kQueued \/ fp_state (up_progress u) = UploadState.kStarting ->
  s_pollStart now u w = (u', w') -> upload_inv u'.
Proof.
  intros Hu Hst.
  assert (active (up_progress u) = true) as Ha by (unfold active; by destruct Hst as [-> | ->]).
  destruct (ui_total u Hu Ha) as [Himg Htot].
  assert (fp_error (up_progress u) = UpdateError.kNone) as He
    by (destruct (upload_error u Hu Ha) as [|[Hc _]]; [done|]; destruct Hst; congruence).
  unfold s_pollStart. destruct (Z.eqb_spec (up_start_id u) 0) as [Hid|Hid].
  - destruct (endpoint_start _ _ _ w) as [r w1] eqn:Hs.
    destruct (fci_device_runtime_result_ok r) eqn:Hok.
    + assert (rt_operation_id r <> 0) as Hnz by (eapply start_nonzero; [|exact Hs|done]; done).
      intros [= <- _]. apply upload_running_inv; cbn; auto. by split.
    + destruct (s_retryable r); intros [= <- _]; [done|]. by apply s_finish_inv.
  - destruct (client_inspect _ _ w) as [c|e].
    + destruct (rpc_pending _); [by intros [= <- _]|].
      destruct (client_decode _ c) as [d response].
      destruct (negb _); [intros [= <- _]; by apply s_finish_inv|].
      destruct (if _ : bool then _ else _) as [[id chunk]|];
        [|intros [= <- _]; by apply s_finish_inv].
      destruct (wl_bulk_sender_start _ _) as [ok sender]. destruct ok; intros [= <- _].
      * apply upload_running_inv; cbn; auto; by split.
      * by apply s_finish_inv.
    + intros [= <- _]. destruct (s_finish_inv UpdateError.kProtocolError (up_with_id 0 u) eq_refl).
      by split.
Qed.

Lemma send_action_inv now u w u' w' :
  upload_inv u -> up_start_id u = 0 -> send_action now u w = (u', w') -> upload_inv u'.
Proof.
  intros Hu Hid. unfold send_action.
  destruct (wl_bulk_sender_action_acquire (up_sender u)) as [[a|] sender];
    [|intros [= <- _]; by apply upload_sender_inv].
  destruct (action_message (up_image u) a) as [[[[d id] m] reliable]|];
    [|intros [= <- _]; by apply s_finish_inv].
  destruct (message_send _ _ _ _ _ w) as [sent w1]. intros [= <- _]. by apply upload_sender_inv.
Qed.

Lemma pump_inv now u w u' w' :
  upload_inv u ->
  fp_state (up_progress u) = UploadState.kUploading \/
  fp_state (up_progress u) = UploadState.kCancelling ->
  pump_transfer now u w = (u', w') -> upload_inv u'.
Proof.
  intros Hu Hst.
  assert (active (up_progress u) = true) as Ha by (unfold active; by destruct Hst as [-> | ->]).
  destruct (ui_total u Hu Ha) as [Himg Htot].
  pose proof (upload_error u Hu Ha) as He.
  assert (up_start_id u = 0) as Hid by (apply (ui_id u Hu); by destruct Hst as [-> | ->]).
  unfold pump_transfer.
  set (u1 := if _ : bool then _ else u).
  assert (upload_inv u1 /\ up_start_id u1 = 0 /\
    (fp_state (up_progress u1) = UploadState.kUploading \/
     fp_state (up_progress u1) = UploadState.kCancelling)) as (Hu1 & Hid1 & Hst1).
  { unfold u1. destruct (up_cancel u && _); [|done]. split; [|cbn; auto].
    apply upload_running_inv; cbn; auto; [rewrite Hid; by split|].
    destruct He as [?|[? ?]]; auto. }
  clearbody u1. clear u Hu Hst Ha Himg Htot He Hid.
  destruct (wl_bulk_sender_get_stats _) as [retries nbusy].
  set (u2 := up_with_progress _ _).
  assert (active (up_progress u1) = true) as Ha by (unfold active; by destruct Hst1 as [-> | ->]).
  assert (upload_inv u2) as Hu2.
  { destruct (ui_total u1 Hu1 Ha). apply upload_running_inv; cbn; auto.
    - by apply (ui_id u1 Hu1).
    - exact (upload_error u1 Hu1 Ha). }
  assert (up_start_id u2 = 0) as Hid2 by done.
  assert (active (up_progress u2) = true) as Ha2 by done.
  clearbody u2. cbv zeta.
  destruct (br_state _).
  - by apply send_action_inv.
  - intros [= <- _]. by apply s_finish_inv.
  - intros [= <- _]. by apply s_finish_inv.
  - destruct (decide _) as [Hc|Hc]; [intros [= <- _]; by apply s_finish_inv|].
    destruct (ui_total u2 Hu2 Ha2). apply send_action_inv; [|done].
    apply upload_running_inv; cbn; auto. rewrite Hid2; by split.
Qed.

Lemma progress_upload_inv now u w u' w' :
  upload_inv u -> progress_upload now u w = (u', w') ->
  upload_inv u' /\ (active (up_progress u) = false -> u' = u).
Proof.
  intros Hu. unfold progress_upload. destruct (active (up_progress u)) eqn:Ha; cbn [negb];
    [|by intros [= <- _]].
  destruct (_ >=? _); [intros [= <- _]; split; [by apply s_finish_inv|done]|].
  intros Hp. split; [|done]. revert Hp.
  destruct (fp_state (up_progress u)) eqn:Hst; try (unfold active in Ha; by rewrite Hst in Ha).
  - destruct (up_cancel u); [|apply pollStart_inv; auto].
    intros [= <- _]. apply s_finish_inv. apply (ui_id u Hu). by rewrite Hst.
  - apply pollStart_inv; auto.
  - apply pump_inv; auto.
  - apply pump_inv; auto.
Qed.

(** *** Events *)

Lemma boot_id_inv q : bq_pending q = false -> boot_inv q -> boot_inv (boot_id 0 q).
Proof. intros Hp [Hi Hd]. by split. Qed.

Lemma reboot_departed_inv n departed c :
  rb_pending c = true -> reboot_inv n c -> reboot_inv n (reboot_departed departed c).
Proof.
  intros Hp [_ _ _ Hs Hc _ _]. apply reboot_finish_inv; [done| |]; cbn.
  - destruct departed, (rr_request_accepted (rb_result c)); cbn; by intuition.
  - intros Ha. rewrite Ha in Hc. by apply Hc.
Qed.

Lemma busy_false verification (u : client) :
  busy verification u = false ->
  active (up_progress (uc_upload u)) = false /\ rb_pending (uc_reboot u) = false /\
  (verification = false -> uc_verifying u = false).
Proof.
  unfold busy. intros Hb. apply orb_false_iff in Hb as [[-> ->]%orb_false_iff Hv].
  split_and!; try done. intros ->. by rewrite andb_true_r in Hv.
Qed.

Lemma status_inv message clock u :
  upload_inv u -> upload_inv (s_status message clock u) /\
  up_progress (s_status message clock u) = up_progress u.
Proof.
  intros Hu. unfold s_status. destruct (fp_state (up_progress u)) eqn:Hst; try done;
    split; try done; by apply upload_sender_inv.
Qed.

(** ** Theorems *)

(** A reboot counts as accepted only on the device's word: the poll that
    notes the acceptance found the call of this reboot answered with status 0
    by a response that decodes, carries the call's id and names the requested
    mode. *)
Theorem reboot_accepted now c (w w' : W) c' :
  s_pollReboot now c w = (c', w') ->
  rr_request_accepted (rb_result c) = false -> rr_request_accepted (rb_result c') = true ->
  rb_pending c' = true /\
  exists r data response,
    client_inspect reboot_rpc (rb_id c) w = Ok r /\ rc_application_status r = 0 /\
    rc_response_data r = Some data /\
    wlc_decode reboot_response_desc data (wlc_clear reboot_response_desc []) = (WL_CODEC_OK, response) /\
    wire_int reboot_response_desc "operation_id" response = (true, rc_operation_id r) /\
    wire_int reboot_response_desc "mode" response = (true, rb_mode c).
Proof.
  unfold s_pollReboot. intros Hp Ha Ha'.
  destruct (negb (rb_pending c)); [injection Hp as <- _; congruence|].
  destruct (_ >=? _); [injection Hp as <- _; cbn in Ha'; congruence|]. rewrite Ha in Hp.
  destruct (rb_id c =? 0).
  { destruct (endpoint_start _ _ _ w) as [r w1]. destruct (fci_device_runtime_result_ok r);
      [injection Hp as <- _; cbn in Ha'; congruence|].
    destruct (s_retryable r); injection Hp as <- _; cbn in Ha'; congruence. }
  destruct (client_inspect reboot_rpc (rb_id c) w) as [r|e] eqn:Hi;
    [|injection Hp as <- _; cbn in Ha'; congruence].
  destruct (rpc_pending _); [injection Hp as <- _; congruence|].
  assert (rr_request_accepted (reboot_response (rb_mode c) r) = true /\ rb_pending c' = true)
    as [Hr ->].
  { destruct (rr_request_accepted (reboot_response _ r)) eqn:Hr; injection Hp as <- _;
      cbn in Ha'; [done|congruence]. }
  split; [done|]. clear Hp Ha'. revert Hr. unfold reboot_response.
  destruct (client_decode reboot_rpc r) as [d response] eqn:Hd.
  destruct (wire_int reboot_response_desc "mode" response) as [hm got] eqn:Hm.
  destruct (decide _); [done|]. destruct (Z.eqb_spec (rc_application_status r) 0) as [Hz|]; [|done].
  destruct (fci_device_runtime_result_ok d) eqn:Hok, hm; try done.
  destruct (Z.eqb_spec got (rb_mode c)) as [->|]; [|done]. intros _.
  destruct (client_decode_ok reboot_rpc r d response Hd Hok) as (_ & _ & _ & _ & (data & Hdt & Hdec) & Hid & _).
  by exists r, data, response.
Qed.

Lemma elapsed_add since d : 0 <= d < 2147483648 -> upgrade_elapsed (u32 (since + d)) since = d.
Proof.
  intros Hd. unfold upgrade_elapsed. cbv zeta.
  rewrite swrap_wrap, swrap_elapsed by (lia || unfold in_s; lia).
  rewrite (proj2 (Z.ltb_ge d 0)) by lia. apply wrap_id. unfold in_u. lia.
Qed.

(** Nothing waits past its deadline.  The first pass of the owner at or
    after the timeout of a boot status query, of a reboot or of an upload ends
    it with a time-out (a finished call has its result ready, an upload drops
    its image), and while any of them runs the owner asks to be woken within
    10 ms. *)
Theorem upgrade_deadlines (u : client) (w : W) d :
  0 <= d < 2147483648 ->
  let q := uc_boot u in let c := uc_reboot u in let p := uc_upload u in
  (bq_pending q = true -> bq_timeout_ms q <= d -> forall q' w',
    s_pollBoot (u32 (bq_since_ms q + d)) q w = (q', w') ->
    bq_pending q' = false /\ bq_done q' = true /\ bs_error (bq_result q') = UpdateError.kTimeout) /\
  (rb_pending c = true -> rb_timeout_ms c <= d -> forall c' w',
    s_pollReboot (u32 (rb_since_ms c + d)) c w = (c', w') ->
    rb_pending c' = false /\ rb_done c' = true /\ rr_error (rb_result c') = UpdateError.kTimeout) /\
  (active (up_progress p) = true -> u32 (uo_timeout (up_options p)) <= d -> forall p' w',
    progress_upload (u32 (up_since_ms p + d)) p w = (p', w') ->
    fp_state (up_progress p') = UploadState.kFailed /\
    fp_error (up_progress p') = UpdateError.kTimeout /\ up_image p' = []) /\
  (active (up_progress p) = true \/ bq_pending q = true \/ rb_pending c = true ->
    deadline_hint u = 10).
Proof.
  intros Hd. cbv zeta. split_and!.
  - intros Hp Ht q' w'. unfold s_pollBoot. rewrite Hp, elapsed_add by done. cbn [negb].
    rewrite Z.geb_leb, (proj2 (Z.leb_le _ _) Ht). by intros [= <- _].
  - intros Hp Ht c' w'. unfold s_pollReboot. rewrite Hp, elapsed_add by done. cbn [negb].
    rewrite Z.geb_leb, (proj2 (Z.leb_le _ _) Ht). by intros [= <- _].
  - intros Hp Ht p' w'. unfold progress_upload. rewrite Hp, elapsed_add by done. cbn [negb].
    rewrite Z.geb_leb, (proj2 (Z.leb_le _ _) Ht). by intros [= <- _].
  - unfold deadline_hint. intros [-> |[-> | ->]]; by rewrite ?orb_true_r.
Qed.
End upgrade.

(** ** The link that keeps a record

    The messages that the client gives to the link are counted where they are
    given: a link [V] that also notes, at each claim, the message id the span
    was claimed for, and, at each commit that the link answers with [WL_OK],
    that id with the payload. *)

Record recorded (V : Type) := {
  re_link : V;
  re_claimed : Z;
  re_given : list (Z * bytes)
}.
Arguments re_link {V}. Arguments re_claimed {V}. Arguments re_given {V}.

Section recorded.
Context {V : Type} `{Link V} {S : Type} `{BulkSender S}.

Abbreviation client := (FciUpgradeClient S).

Definition with_link (v : V) (w : recorded V) : recorded V :=
  {| re_link := v; re_claimed := re_claimed w; re_given := re_given w |}.
Definition on_link {A} (f : V -> A * V) (w : recorded V) : A * recorded V :=
  let '(a, v) := f (re_link w) in (a, with_link v w).

#[export] Instance recorded_link : Link (recorded V) := {|
  wl_endpoint_now w := wl_endpoint_now (re_link w);
  wl_rpc_client_begin req resp timeout now := on_link (wl_rpc_client_begin req resp timeout now);
  wl_rpc_client_begin_with_id id req resp timeout now :=
    on_link (wl_rpc_client_begin_with_id id req resp timeout now);
  wl_rpc_client_link_failed id r := on_link (wl_rpc_client_link_failed id r);
  wl_rpc_client_bind_tx id handle := on_link (wl_rpc_client_bind_tx id handle);
  wl_rpc_client_get id w := wl_rpc_client_get id (re_link w);
  wl_rpc_client_cancel id w := with_link (wl_rpc_client_cancel id (re_link w)) w;
  wl_rpc_client_release id := on_link (wl_rpc_client_release id);
  wl_tx_cancel handle w := with_link (wl_tx_cancel handle (re_link w)) w;
  wl_tx_payload_claim id reliable w :=
    let '(answer, v) := wl_tx_payload_claim id reliable (re_link w) in
    (answer, {| re_link := v; re_claimed := id; re_given := re_given w |});
  wl_tx_payload_abort w := with_link (wl_tx_payload_abort (re_link w)) w;
  wl_tx_payload_commit payload now reliable w :=
    let '(core, handle, v) := wl_tx_payload_commit payload now reliable (re_link w) in
    (core, handle, {| re_link := v; re_claimed := re_claimed w;
       re_given := re_given w ++
         (if decide (core = WL_OK) then [(re_claimed w, payload)] else []) |})
|}.

(** The reboot requests given to the link. *)
Definition requests (w : recorded V) : nat :=
  length (filter (fun m => fst m = rpc_request_id reboot_rpc) (re_given w)).

Lemma on_link_requests {A} (f : V -> A * V) w a w' :
  on_link f w = (a, w') -> requests w' = requests w.
Proof. unfold on_link. destruct (f (re_link w)). by intros [= _ <-]. Qed.

(** A message is given exactly when its sending succeeds. *)
Lemma message_send_requests d id message reliable now w r w' :
  message_send d id message reliable now w = (r, w') ->
  requests w' = (requests w +
    (if decide (id = rpc_request_id reboot_rpc /\ sent_domain r = FCI_DEVICE_SEND_OK)
     then 1 else 0))%nat /\
  (sent_domain r = FCI_DEVICE_SEND_CORE_ERROR -> sent_core_result r <> WL_OK).
Proof.
  unfold message_send. cbn [wl_tx_payload_claim recorded_link].
  destruct (wl_tx_payload_claim id reliable (re_link w)) as [[core capacity] v].
  destruct (decide (core = WL_OK)) as [->|Hc].
  2:{ intros [= <- <-]. cbn. rewrite decide_False by (by intros []). by rewrite Nat.add_0_r. }
  destruct (wlc_encode d message capacity) as [[n|e] payload].
  2:{ intros [= <- <-]. cbn. rewrite decide_False by (by intros []). by rewrite Nat.add_0_r. }
  cbn [wl_tx_payload_commit recorded_link re_link re_claimed re_given].
  destruct (wl_tx_payload_commit _ _ _ _) as [[sent handle] v']. intros [= <- <-]. cbn.
  unfold requests. cbn [re_given]. rewrite list.filter_app, length_app.
  destruct (decide (sent = WL_OK)) as [->|Hs]; [|by rewrite decide_False by (by intros [])].
  split; [|done]. f_equal. cbn.
  destruct (decide (id = 28932)) as [->|Hid]; [done|].
  by rewrite decide_False by (by intros []).
Qed.

Lemma finish_start_requests id sent w r w' :
  client_finish_start id sent w = (r, w') -> requests w' = requests w.
Proof.
  unfold client_finish_start. cbn [wl_rpc_client_bind_tx wl_rpc_client_link_failed
    wl_rpc_client_release recorded_link].
  destruct (sent_domain sent).
  1: { destruct (on_link _ w) as [b w1] eqn:Hb. intros [= _ <-]. by eapply on_link_requests. }
  all: destruct (on_link _ w) as [r1 w1] eqn:Hl; destruct (decide (r1 = WL_RPC_OK));
    [destruct (on_link _ w1) as [r2 w2] eqn:Hr|]; intros [= _ <-];
    rewrite ?(on_link_requests _ _ _ _ Hr); by eapply on_link_requests.
Qed.

(** [wirelink/rpc.h]: a call takes its slot at [begin]; binding a transmission
    to a call never finds the slots exhausted. *)
Definition bind_has_slot : Prop := forall id handle (v v' : V),
  wl_rpc_client_bind_tx id handle v <> (WL_RPC_ERR_NO_SLOT, v').
Hypothesis Hids : nonzero_ids (W := V).
Hypothesis Hbind : bind_has_slot.

Lemma recorded_nonzero : nonzero_ids (W := recorded V).
Proof.
  intros req resp timeout now w w' id. cbn. unfold on_link.
  destruct (wl_rpc_client_begin _ _ _ _ _) as [[r i] v] eqn:Hb. intros [= -> -> _].
  by eapply Hids.
Qed.

Lemma finish_start_sent id sent (w : recorded V) r w' :
  client_finish_start id sent w = (r, w') ->
  (fci_device_runtime_result_ok r = true -> sent_domain sent = FCI_DEVICE_SEND_OK) /\
  (s_retryable r = true -> sent_domain sent <> FCI_DEVICE_SEND_OK).
Proof.
  unfold client_finish_start. cbn [wl_rpc_client_bind_tx wl_rpc_client_link_failed
    wl_rpc_client_release recorded_link].
  destruct (sent_domain sent).
  - destruct (on_link _ w) as [b w1] eqn:Hb. intros [= <- _]. split; [done|].
    unfold s_retryable. cbn. destruct (decide (b = WL_RPC_OK)); [done|]. cbn.
    intros Hs%bool_decide_eq_true _. subst b. revert Hb. unfold on_link.
    destruct (wl_rpc_client_bind_tx _ _ _) as [b v] eqn:Hv. intros [= -> _]. by eapply Hbind.
  - destruct (on_link _ w) as [r1 w1]. destruct (if decide _ then _ else _). by intros [= <- _].
  - destruct (on_link _ w) as [r1 w1]. destruct (if decide _ then _ else _). by intros [= <- _].
Qed.

Lemma begin_requests c request timeout now (w : recorded V) begun id w1 :
  (let '(has_id, given) := wire_int (rpc_request c) "operation_id" request in
   if has_id && negb (given =? 0) then
     let '(r, w) := wl_rpc_client_begin_with_id given (rpc_request_id c) (rpc_response_id c)
       timeout now w in (r, given, w)
   else wl_rpc_client_begin (rpc_request_id c) (rpc_response_id c) timeout now w)
   = (begun, id, w1) -> requests w1 = requests w.
Proof.
  destruct (wire_int _ _ _) as [has given].
  cbn [wl_rpc_client_begin wl_rpc_client_begin_with_id recorded_link]. destruct (has && _).
  - destruct (on_link _ w) as [b w2] eqn:Hb. intros [= _ _ <-]. by eapply on_link_requests.
  - intros Hb. by eapply on_link_requests.
Qed.

(** A call started gives its request to the link once: certainly when the
    start succeeds, not when it fails in a way the client tries again. *)
Lemma start_requests c request timeout (w : recorded V) r w' :
  endpoint_start c request timeout w = (r, w') ->
  (rpc_request_id c <> rpc_request_id reboot_rpc -> requests w' = requests w) /\
  (rpc_request_id c = rpc_request_id reboot_rpc ->
   (fci_device_runtime_result_ok r = true -> requests w' = requests w + 1)%nat /\
   (s_retryable r = true -> requests w' = requests w) /\
   (requests w <= requests w' <= requests w + 1)%nat).
Proof.
  unfold endpoint_start, client_start. pose proof (begin_requests c request timeout
    (wl_endpoint_now w) w) as Hbegin.
  destruct (wire_int _ _ _) as [has given].
  destruct (if has && _ then _ else _) as [[begun id] w1]. specialize (Hbegin _ _ _ eq_refl).
  destruct (decide (begun = WL_RPC_OK)) as [->|Hbn].
  2:{ intros [= <- <-]. rewrite Hbegin. split; [done|]. intros _. split_and!; [done|done|lia|lia]. }
  destruct (message_send _ _ _ _ _ w1) as [sent w2] eqn:Hs.
  destruct (message_send_requests _ _ _ _ _ _ _ _ Hs) as [Hreq _]. intros Hf.
  rewrite (finish_start_requests _ _ _ _ _ Hf), Hreq, Hbegin.
  destruct (finish_start_sent _ _ _ _ _ Hf) as [Hok Hre].
  split; [intros Hne; by rewrite decide_False by (by intros []); lia|]. intros Heq. split_and!.
  - intros Hr. by rewrite decide_True by auto.
  - intros Hr. rewrite decide_False by (intros []; by apply Hre). lia.
  - destruct (decide _); lia.
  - destruct (decide _); lia.
Qed.

Lemma cancelRpc_requests id (w : recorded V) : requests (s_cancelRpc id w) = requests w.
Proof.
  unfold s_cancelRpc. destruct (id =? 0); [done|]. destruct (wl_rpc_client_get id w) as [r|]; [|done].
  cbn [wl_rpc_client_release wl_rpc_client_cancel wl_tx_cancel recorded_link].
  destruct (on_link _ _) as [b w1] eqn:Hr. apply on_link_requests in Hr. cbn [snd]. rewrite Hr.
  by destruct (rc_tx_handle r =? 0).
Qed.

Lemma release_requests c id (w : recorded V) : requests (snd (client_release c id w)) = requests w.
Proof.
  unfold client_release. destruct (client_inspect c id w); [|done].
  cbn [wl_rpc_client_release recorded_link].
  destruct (on_link _ w) as [b w1] eqn:Hr. by apply on_link_requests in Hr.
Qed.

Lemma pollBoot_requests now q (w : recorded V) q' w' :
  s_pollBoot now q w = (q', w') -> requests w' = requests w.
Proof.
  unfold s_pollBoot. destruct (negb _); [by intros [= _ <-]|].
  destruct (_ >=? _); [intros [= _ <-]; apply cancelRpc_requests|].
  destruct (bq_id q =? 0).
  - destruct (endpoint_start _ _ _ w) as [r w1] eqn:Hs. apply start_requests in Hs as [Hs _].
    destruct (fci_device_runtime_result_ok r); [|destruct (s_retryable r)]; intros [= _ <-]; by apply Hs.
  - destruct (client_inspect _ _ w) as [c|e]; [destruct (rpc_pending _); [by intros [= _ <-]|]|];
      intros [= _ <-]; apply release_requests.
Qed.

Lemma pollStart_requests now u (w : recorded V) u' w' :
  s_pollStart (S := S) now u w = (u', w') -> requests w' = requests w.
Proof.
  unfold s_pollStart. destruct (up_start_id u =? 0).
  - destruct (endpoint_start _ _ _ w) as [r w1] eqn:Hs. apply start_requests in Hs as [Hs _].
    destruct (fci_device_runtime_result_ok r); [|destruct (s_retryable r)]; intros [= _ <-]; by apply Hs.
  - destruct (client_inspect _ _ w) as [c|e].
    2:{ intros [= _ <-]. apply cancelRpc_requests. }
    destruct (rpc_pending _); [by intros [= _ <-]|].
    destruct (client_decode _ c) as [d response].
    destruct (negb _); [intros [= _ <-]; apply release_requests|].
    destruct (if _ : bool then _ else _) as [[id chunk]|]; [|intros [= _ <-]; apply release_requests].
    destruct (wl_bulk_sender_start _ _) as [ok sender].
    destruct ok; intros [= _ <-]; apply release_requests.
Qed.

Lemma send_action_requests now u (w : recorded V) u' w' :
  send_action (S := S) now u w = (u', w') -> requests w' = requests w.
Proof.
  unfold send_action.
  destruct (wl_bulk_sender_action_acquire (up_sender u)) as [[a|] sender]; [|by intros [= _ <-]].
  destruct (action_message (up_image u) a) as [[[[d id] m] reliable]|] eqn:Ha; [|by intros [= _ <-]].
  destruct (message_send _ _ _ _ _ w) as [sent w1] eqn:Hs. intros [= _ <-].
  apply message_send_requests in Hs as [-> _].
  rewrite decide_False; [lia|]. intros [Hid _]. revert Ha. unfold action_message.
  destruct (ba_phase a); try done; intros E; injection E; intros; by subst id.
Qed.

Lemma pump_requests now u (w : recorded V) u' w' :
  pump_transfer (S := S) now u w = (u', w') -> requests w' = requests w.
Proof.
  unfold pump_transfer. destruct (wl_bulk_sender_get_stats _). cbv zeta.
  destruct (br_state _); try destruct (decide _); try (by intros [= _ <-]); apply send_action_requests.
Qed.

Lemma progress_upload_requests now u (w : recorded V) u' w' :
  progress_upload (S := S) now u w = (u', w') -> requests w' = requests w.
Proof.
  unfold progress_upload. destruct (negb _); [by intros [= _ <-]|].
  destruct (_ >=? _); [intros [= _ <-]; apply cancelRpc_requests|].
  destruct (fp_state _); try apply pump_requests; try apply pollStart_requests.
  destruct (up_cancel u); [by intros [= _ <-]|apply pollStart_requests].
Qed.

(** ** Steps *)

(** The client, the link with its record, and how many reboot requests the
    link had been given when [reboot] last accepted a call. *)
Record upgrade_state := { us_client : client; us_link : recorded V; us_since : nat }.

Definition since (ev : upgrade_event) (u : client) (w : recorded V) (n : nat) : nat :=
  match ev with
  | EvReboot mode timeout verification clock =>
      match fst (reboot_begin mode timeout verification clock u) with
      | None => requests w
      | Some _ => n
      end
  | _ => n
  end.

(** Everybody else may change the link, not what this client has given to it. *)
Inductive upgrade_step : upgrade_state -> upgrade_state -> Prop :=
| step_event ev u w n :
    upgrade_step {| us_client := u; us_link := w; us_since := n |}
      {| us_client := fst (apply_event ev u w); us_link := snd (apply_event ev u w);
         us_since := since ev u w n |}
| step_link u w v n :
    upgrade_step {| us_client := u; us_link := w; us_since := n |}
      {| us_client := u; us_link := with_link v w; us_since := n |}.

Definition recorded0 (v : V) : recorded V := {| re_link := v; re_claimed := 0; re_given := [] |}.
Definition upgrade_reachable (s : upgrade_state) : Prop :=
  exists v, steps upgrade_step {| us_client := client0; us_link := recorded0 v; us_since := 0 |} s.

Record upgrade_inv (s : upgrade_state) : Prop := {
  gv_boot : boot_inv (uc_boot (us_client s));
  gv_reboot : exists n, requests (us_link s) = (us_since s + n)%nat /\
    reboot_inv n (uc_reboot (us_client s));
  gv_upload : upload_inv (uc_upload (us_client s));
  gv_exclusive : active (up_progress (uc_upload (us_client s))) = true ->
    rb_pending (uc_reboot (us_client s)) = false /\ uc_verifying (us_client s) = false
}.

(** A poll of the reboot call gives at most the request that is missing. *)
Lemma pollReboot_inv n now c (w : recorded V) c' w' :
  reboot_inv n c -> s_pollReboot now c w = (c', w') ->
  exists k, requests w' = (requests w + k)%nat /\ reboot_inv (n + k) c' /\
    (rb_id c <> 0 -> k = 0%nat) /\ (rb_pending c = false -> c' = c) /\ rb_calling c' = rb_calling c.
Proof.
  intros Hc. pose proof Hc as [Hidle Hpend Hacc Hsent Hcount Hdone Htaken].
  unfold s_pollReboot.
  assert (forall c1 w1, requests w1 = requests w -> reboot_inv n c1 ->
    (rb_pending c = false -> c1 = c) -> rb_calling c1 = rb_calling c -> (c1, w1) = (c', w') ->
    exists k, requests w' = (requests w + k)%nat /\ reboot_inv (n + k) c' /\
      (rb_id c <> 0 -> k = 0%nat) /\ (rb_pending c = false -> c' = c) /\
      rb_calling c' = rb_calling c) as Hsame.
  { intros c1 w1 Hr Hi He Hl [= <- <-]. exists 0%nat. rewrite Hr, !Nat.add_0_r. by split_and!. }
  destruct (rb_pending c) eqn:Hp; cbn [negb]; [|by apply Hsame].
  destruct (Hpend eq_refl) as (Hnd & Herr & Hdep). specialize (Hcount eq_refl).
  destruct (_ >=? _).
  { apply Hsame; [apply cancelRpc_requests| |done|done]. apply reboot_finish_inv; [done| |].
    - cbn. rewrite Hdep. split; [done|by intros [_ ?]].
    - cbn. intros Ha. by rewrite Ha in Hcount. }
  destruct (rr_request_accepted (rb_result c)) eqn:Ha; cbn [negb andb orb] in *; [by apply Hsame|].
  destruct (Z.eqb_spec (rb_id c) 0) as [Hid|Hid]; cbn [negb andb] in *.
  - destruct (endpoint_start _ _ _ w) as [r w1] eqn:Hs.
    destruct (start_requests _ _ _ _ _ _ Hs) as [_ Hreq]. destruct (Hreq eq_refl) as (Hok & Hre & Hle).
    destruct (fci_device_runtime_result_ok r) eqn:Hr.
    + intros [= <- <-]. exists 1%nat. split; [auto|]. split; [|done].
      assert (rt_operation_id r <> 0) as Hnz
        by (eapply (start_nonzero recorded_nonzero); [|exact Hs|done]; done).
      split; cbn; rewrite ?Ha, ?Hnd; try done; [lia|].
      rewrite (proj2 (Z.eqb_neq _ 0) Hnz). cbn. lia.
    + destruct (s_retryable r); [by apply Hsame; auto|].
      intros [= <- <-]. exists (requests w1 - requests w)%nat. split; [lia|]. split; [|done].
      apply reboot_failed_inv; [lia|done].
  - destruct (client_inspect _ _ w) as [r|e].
    + destruct (rpc_pending _); [by apply Hsame|].
      destruct (reboot_response_fields (rb_mode c) r) as [Hd He].
      destruct (rr_request_accepted (reboot_response (rb_mode c) r)) eqn:Hra;
        (apply Hsame; [apply release_requests| |done|done]).
      * split; cbn; rewrite ?Hra, ?Hnd; try done. by rewrite He.
      * apply reboot_finish_inv; [lia| |by rewrite Hra].
        rewrite Hra. split; [by intros ?%reboot_response_error|by intros [? _]].
    + apply Hsame; [apply release_requests| |done|done]. apply reboot_failed_inv; [lia|done].
Qed.

Lemma disconnected_inv departed clock u w n u' w' :
  upgrade_inv {| us_client := u; us_link := w; us_since := n |} ->
  disconnected departed clock u w = (u', w') ->
  upgrade_inv {| us_client := u'; us_link := w'; us_since := n |}.
Proof.
  intros [Hb (k & Hk & Hr) Hu Hx]. cbn [us_client us_link us_since] in *. unfold disconnected.
  destruct (if rb_pending (uc_reboot u) && _ then _ else _) as [r w1] eqn:Hpoll.
  assert (requests w1 = (n + k)%nat /\ reboot_inv k r) as [Hk' Hr'].
  { destruct (rb_pending (uc_reboot u)); cbn [andb] in Hpoll; [|by injection Hpoll as <- <-].
    destruct (Z.eqb_spec (rb_id (uc_reboot u)) 0) as [|Hid]; cbn [negb] in Hpoll;
      [by injection Hpoll as <- <-|].
    destruct (pollReboot_inv k clock _ _ _ _ Hr Hpoll) as (d & Hd & Hr' & Hd0 & _).
    rewrite (Hd0 Hid), Nat.add_0_r in *. by rewrite Hd. }
  clear Hpoll Hr. intros [= <- <-].
  assert (forall p : Upload S, active (up_progress (if active (up_progress p) then
    s_finish UpdateError.kTransportError p else p)) = false) as Hoff.
  { intros p. destruct (active (up_progress p)) eqn:Ha; [done|exact Ha]. }
  split; cbn [us_client us_link us_since with_upload with_reboot with_boot uc_boot uc_reboot
    uc_upload uc_verifying].
  - destruct (bq_pending (uc_boot u)) eqn:Hp; [apply boot_finish_inv|by apply boot_id_inv].
  - exists k. rewrite !cancelRpc_requests. split; [done|].
    destruct (rb_pending r) eqn:Hp; [by apply reboot_departed_inv|].
    destruct Hr' as [Hi _ Ha Hs _ Hd Ht]. split; cbn; try done.
  - change (up_progress (up_with_id 0 (uc_upload u))) with (up_progress (uc_upload u)).
    destruct (active (up_progress (uc_upload u))) eqn:Ha; [by apply s_finish_inv|].
    destruct Hu as [Hid Himg Htot Ho]. split; cbn in *; try done.
    split; [|done]. intros _ Hst. unfold active in Ha. by rewrite Hst in Ha.
  - intros Ha. specialize (Hoff (up_with_id 0 (uc_upload u))). cbn in Hoff, Ha. congruence.
Qed.

Lemma pass_inv now u w n :
  upgrade_inv {| us_client := u; us_link := w; us_since := n |} ->
  upgrade_inv {| us_client := fst (upgrade_progress now u w);
    us_link := snd (upgrade_progress now u w); us_since := n |}.
Proof.
  intros [Hb (k & Hk & Hr) Hu Hx]. cbn [us_client us_link us_since] in *.
  unfold upgrade_progress.
  destruct (s_pollBoot now (uc_boot u) w) as [q w1] eqn:H1.
  destruct (s_pollReboot now (uc_reboot u) w1) as [r w2] eqn:H2.
  destruct (progress_upload now (uc_upload u) w2) as [p w3] eqn:H3.
  destruct (pollBoot_inv _ _ _ _ _ Hb H1) as (Hb' & _).
  destruct (pollReboot_inv k _ _ _ _ _ Hr H2) as (d & Hd & Hr' & _ & Hsame & _).
  destruct (progress_upload_inv recorded_nonzero _ _ _ _ _ Hu H3) as (Hu' & Hidle).
  split; cbn; try done.
  - exists (k + d)%nat. split; [|done].
    rewrite (progress_upload_requests _ _ _ _ _ H3), Hd, (pollBoot_requests _ _ _ _ _ H1). lia.
  - intros Ha. destruct (active (up_progress (uc_upload u))) eqn:Ha0.
    + destruct (Hx eq_refl) as [Hp Hv]. by rewrite Hsame.
    + rewrite Hidle in Ha by done. congruence.
Qed.

Lemma event_inv ev u w n :
  upgrade_inv {| us_client := u; us_link := w; us_since := n |} ->
  upgrade_inv {| us_client := fst (apply_event ev u w); us_link := snd (apply_event ev u w);
    us_since := since ev u w n |}.
Proof.
  intros Hinv. pose proof Hinv as [Hb (k & Hk & Hr) Hu Hx]. cbn [us_client us_link us_since] in *.
  assert (forall u1 : client, uc_boot u1 = uc_boot u -> uc_reboot u1 = uc_reboot u ->
    uc_upload u1 = uc_upload u ->
    (uc_verifying u1 = true -> uc_verifying u = true \/ busy false u = false) ->
    upgrade_inv {| us_client := u1; us_link := w; us_since := n |}) as Hflags.
  { intros u1 E1 E2 E3 Hv. split; cbn; rewrite ?E1, ?E2, ?E3; try done; [by exists k|].
    intros Ha. destruct (Hx Ha) as [Hp Hver]. split; [done|].
    destruct (uc_verifying u1); [|done]. destruct (Hv eq_refl) as [?|(? & _)%busy_false]; congruence. }
  destruct ev; cbn [apply_event since fst snd].
  - apply Hflags; auto.
  - unfold transportState. destruct (uc_transport_connected u && _).
    + destruct (disconnected _ _ _ _) as [u' w'] eqn:Hd. eapply disconnected_inv; [|exact Hd].
      apply Hflags; auto.
    + apply Hflags; auto.
  - unfold on_peer_session. destruct (negb _).
    + destruct (disconnected _ _ _ _) as [u' w'] eqn:Hd. eapply disconnected_inv; [|exact Hd].
      apply Hflags; auto.
    + apply Hflags; auto.
  - unfold on_close. destruct (disconnected _ _ _ _) as [u' w'] eqn:Hd.
    by eapply disconnected_inv.
  - unfold beginVerification. destruct (negb _); [done|]. destruct (busy false u) eqn:Hbz; [done|].
    apply Hflags; auto.
  - apply Hflags; auto. done.
  - unfold bootStatus_begin. destruct (bq_calling _); [done|]. destruct (negb (valid_timeout _)); [done|].
    destruct (negb _); [done|]. destruct (bq_pending (uc_boot u)) eqn:Hp; [done|]. split; cbn; try done; try (by exists k).
  - destruct Hb. split; cbn; try done; try (by exists k).
  - unfold startUpload.
    match goal with |- context [if ?b then (UpdateError.kInvalidArgument, _) else _] =>
      destruct b eqn:Hargs; [done|] end.
    destruct (negb (uc_running u)); [done|].
    destruct (busy false u) eqn:Hbz; [done|]. apply busy_false in Hbz as (Ha & Hp & Hv). split; cbn; try done; try (by exists k).
    + assert (up_start_id (uc_upload u) = 0) as Hid.
      { apply (ui_id _ Hu). intros Hst. unfold active in Ha. by rewrite Hst in Ha. }
      destruct image; [done|]. apply upload_running_inv; cbn; auto. rewrite Hid. by split.
    + auto.
  - unfold reboot_begin. destruct (rb_calling _); [done|].
    match goal with |- context [if ?b then (Some (reboot_result UpdateError.kInvalidArgument), _) else _] =>
      destruct b; [done|] end.
    destruct (negb (uc_running u)); [done|]. destruct (busy verification u) eqn:Hbz; [done|].
    apply busy_false in Hbz as (Ha & Hp & Hv). cbn [fst snd]. split; cbn; try done; try (by exists k).
    + exists 0%nat. split; [lia|]. pose proof (ri_idle k _ Hr Hp) as Hid.
      split; cbn; try done; try (by exists k); [lia|]. by rewrite Hid.
    + intros Hac. congruence.
  - split; cbn; try done. exists k. split; [done|]. destruct Hr. by split.
  - unfold cancel. destruct (active _) eqn:Ha; [|done]. split; cbn; [done|by exists k|destruct Hu; by split|intros _; by apply Hx].
  - destruct (status_inv message clock (uc_upload u) Hu) as [Hu' Hp]. split; cbn; try done; try (by exists k).
    by rewrite Hp.
  - by apply (pass_inv now u w n).
Qed.

Lemma client0_inv v :
  upgrade_inv {| us_client := (client0 : client); us_link := recorded0 v; us_since := 0 |}.
Proof.
  split; cbn; try done. exists 0%nat. split; [done|]. split; cbn; try done; lia.
Qed.

Lemma upgrade_reachable_inv s : upgrade_reachable s -> upgrade_inv s.
Proof.
  intros [v Hs]. eapply (steps_invariant upgrade_step upgrade_inv); [|exact Hs|apply client0_inv].
  clear s Hs. intros s s' Hinv Hst. destruct Hst as [ev u w n|u w v' n]; [by apply event_inv|].
  destruct Hinv. by split.
Qed.

(** C3: a reboot is requested once and reported as it was.  In every reachable
    state the link has been given at most one reboot request (a committed
    message 28932) since the last accepted call of [reboot], whatever answers,
    losses and time-outs occurred and whatever else happened to the link; a
    call that has ended reports success exactly when the device accepted the
    request and its departure was observed afterwards; and a call that reports
    an accepted request has given the link exactly one. *)
Theorem reboot_once s :
  upgrade_reachable s ->
  let c := uc_reboot (us_client s) in
  (requests (us_link s) <= us_since s + 1)%nat /\
  (rb_done c = true ->
   (rr_error (rb_result c) = UpdateError.kNone <->
    rr_request_accepted (rb_result c) = true /\ rr_departure_observed (rb_result c) = true) /\
   (rr_request_accepted (rb_result c) = true -> requests (us_link s) = us_since s + 1)%nat).
Proof.
  intros Hs. cbv zeta. destruct (gv_reboot s (upgrade_reachable_inv s Hs)) as (n & -> & [? ? ? ? ? ? Ht]).
  split; [lia|]. intros Hd. split; [auto|]. intros Ha. by rewrite (Ht Hd Ha).
Qed.

(** The jobs of the client exclude each other.  In every reachable state an
    upload that is active runs beside no reboot and no verification; it holds
    the whole image, and an upload that is over holds none of it; an RPC is
    outstanding only for a job that waits for it; and the final state of an
    upload tells its error. *)
Theorem upgrade_exclusive s :
  upgrade_reachable s ->
  let u := us_client s in
  let p := up_progress (uc_upload u) in
  (active p = true ->
    rb_pending (uc_reboot u) = false /\ uc_verifying u = false /\
    up_image (uc_upload u) <> [] /\ fp_total_bytes p = Z.of_nat (length (up_image (uc_upload u)))) /\
  (active p = false -> up_image (uc_upload u) = [] /\ up_start_id (uc_upload u) = 0) /\
  (rb_pending (uc_reboot u) = false -> rb_id (uc_reboot u) = 0) /\
  (bq_pending (uc_boot u) = false -> bq_id (uc_boot u) = 0) /\
  (fp_state p = UploadState.kCompleted -> fp_error p = UpdateError.kNone) /\
  (fp_state p = UploadState.kCancelled -> fp_error p = UpdateError.kCancelled) /\
  (fp_state p = UploadState.kFailed ->
    fp_error p <> UpdateError.kNone /\ fp_error p <> UpdateError.kCancelled).
Proof.
  intros Hs. cbv zeta. destruct (upgrade_reachable_inv s Hs) as [Hb (k & _ & Hr) Hu Hx].
  destruct Hu as [Hid Himg Htot Ho]. split_and!.
  - intros Ha. destruct (Hx Ha), (Htot Ha). auto.
  - intros Ha. split; [auto|]. apply Hid. intros Hst. unfold active in Ha. by rewrite Hst in Ha.
  - apply (ri_idle _ _ Hr).
  - apply (bi_idle _ Hb).
  - intros Hst. by rewrite Hst in Ho.
  - intros Hst. by rewrite Hst in Ho.
  - intros Hst. by rewrite Hst in Ho.
Qed.

End recorded.
