(* ===== verification/UpgradeTransfer.v ===== *)
(** * Firmware upgrade: the data sent, the endpoint beside it, and sample runs

    The chunks of an image on the wire; the endpoint of [EndpointOps.v] while
    the client of [UpgradeClient.v] is active; a concrete bulk sender and runs
    of the client over the concrete link of [FciRpc.v], which the theorems of
    [UpgradeProps.v] are applied to. *)

From Stdlib Require Import String.
From S2P Require Import Prelude WlcWire WlcSchema WlcCodec WlcRoundtrip FciMessages FciApi FciProperties FciSizes DeviceTypes.
From S2P Require Import Endpoint EndpointOps EndpointInv EndpointProps FciRpc UpgradeClient UpgradeProps.

(** ** Chunks *)

Definition chunk_slots (id offset : Z) (data : bytes) : wstruct :=
  [SOpt true (VInt id); SOpt true (VInt offset);
   SOpt true (VSpan (Some data) (Z.of_nat (length data)))].

Lemma chunk_measure id offset data :
  Z.of_nat (length data) <= 2031 ->
  exists n, wlc_measure bulk_chunk_desc (chunk_slots id offset data) = Ok n /\ n <= 2048.
Proof.
  intros Hl.
  pose proof (vsize_le (Z.of_nat (length data)) 2031 ltac:(lia) ltac:(unfold in_u; lia)) as Hv.
  change (wlc_vsize 2031) with 2 in Hv.
  cbn -[wlc_add wlc_vsize SIZE_MAX Z.add Z.of_nat]. unfold span_body.
  cbn -[wlc_add wlc_vsize SIZE_MAX Z.add Z.gtb Z.of_nat].
  replace (Z.of_nat (length data) >? 2031) with false by (symmetry; rewrite Z.gtb_ltb; lia).
  rewrite (andb_false_r (negb _)).
  assert (forall a b, a + b <= 4096 -> wlc_add a b = Ok (a + b)) as Hadd.
  { intros a b Hab. apply wlc_add_ok. unfold SIZE_MAX. lia. }
  repeat (rewrite Hadd by lia; cbn [mbind res_bind]).
  eexists. split; [reflexivity|]. lia.
Qed.

(** The device gets the bytes of the image.  A chunk that the bulk sender
    asks for, within the image and the chunk size that the response to
    [start_upgrade] was checked for, always fits the 2048-byte payload, and
    decodes at the device to the transfer's id, the offset and exactly the
    bytes of the image at that offset. *)
Theorem chunk_sent image a capacity :
  bytes_ok image -> Z.of_nat (length image) < 2 ^ 64 ->
  ba_phase a = WL_BULK_PHASE_CHUNK -> in_u 32 (bd_transfer_id (ba_descriptor a)) ->
  0 <= ba_offset a -> 0 <= ba_length a <= 2031 ->
  ba_offset a + ba_length a <= Z.of_nat (length image) -> 2048 <= capacity ->
  exists message n payload,
    action_message image a = Some (bulk_chunk_desc, 28705, message, false) /\
    wlc_encode bulk_chunk_desc message capacity = (Ok n, payload) /\ n <= 2048 /\
    forall old, wlc_decode bulk_chunk_desc payload old =
      (WL_CODEC_OK, chunk_slots (bd_transfer_id (ba_descriptor a)) (ba_offset a)
        (take (Z.to_nat (ba_length a)) (drop (Z.to_nat (ba_offset a)) image))).
Proof.
  intros Hb Hsz Hph Hid Ho Hl Hin Hcap.
  set (data := take (Z.to_nat (ba_length a)) (drop (Z.to_nat (ba_offset a)) image)).
  assert (Z.of_nat (length data) = ba_length a) as Hlen.
  { unfold data. rewrite length_take, length_drop. lia. }
  assert (bytes_ok data) as Hdata by (by apply Forall_take, Forall_drop).
  set (slots := chunk_slots (bd_transfer_id (ba_descriptor a)) (ba_offset a) data).
  assert (action_message image a = Some (bulk_chunk_desc, 28705, slots, false)) as Hm.
  { unfold action_message. rewrite Hph. cbn [wire_set set_scalar]. unfold slots, chunk_slots.
    rewrite Hlen. reflexivity. }
  assert (In bulk_chunk_desc fci_descs) as Hd by in_descs.
  assert (valid bulk_chunk_desc slots = true) as Hv.
  { unfold slots, chunk_slots. cbn -[between_u Z.of_nat bytes_okb Z.eqb].
    unfold valid_slot, valid_value. cbn -[between_u Z.of_nat bytes_okb Z.eqb].
    rewrite (proj2 (between_u_spec 32 _) Hid), (proj2 (bytes_okb_spec data) Hdata), Z.eqb_refl.
    unfold in_u in *.
    rewrite (proj2 (between_u_spec 64 (ba_offset a))), (proj2 (between_u_spec 64 (Z.of_nat (length data))))
      by (unfold in_u; lia). done. }
  destruct (chunk_measure (bd_transfer_id (ba_descriptor a)) (ba_offset a) data ltac:(lia))
    as (n & Hn & Hle). fold slots in Hn.
  assert (exists payload, wlc_encode bulk_chunk_desc slots capacity = (Ok n, payload)) as [payload He].
  { unfold wlc_encode. rewrite Hn. rewrite (proj2 (Z.ltb_ge capacity n)) by lia.
    destruct (desc_wf _ Hd) as [Hwf _]. rewrite (emit_cursor _ _ n Hwf Hv Hn). by eexists. }
  exists slots, n, payload. split; [done|]. split; [done|]. split; [done|].
  intros old. rewrite (proj2 (encode_sound _ _ _ _ _ Hd Hv He)). reflexivity.
Qed.

(** ** The endpoint beside the client *)

(** A failed RPC leaves no token where there was none. *)
Lemma finalize_no_token clock i c e s :
  m_operations e !! i = Some s -> c <> WL_RPC_SUCCESS -> l_token (m_lease e) = 0 ->
  l_token (m_lease (s_finalize clock i (completed_with c) None e)) = 0.
Proof.
  intros Hs Hc Ht. rewrite (finalize_lease clock i _ None e s Hs).
  destruct (negb (m_running e)); [done|].
  assert (o_status (finalized (completed_with c) None s) <> kOk) as Hst
    by (intros (Hx & _)%finalized_ok; by destruct c).
  destruct (o_kind s); try done; by rewrite decide_False.
Qed.

Lemma startNext_no_token start_rpc clock now e :
  l_token (m_lease e) = 0 -> l_token (m_lease (snd (s_startNext start_rpc clock now e))) = 0.
Proof.
  intros Ht.
  destruct (startNext_cases start_rpc clock now e) as [| |i s _ _ Hs|i s _ _ Hs|i s r _ _ Hs|i s r _ _ Hs];
    cbn [snd]; try done;
    destruct (marked_frame i s e) as (Hm & _ & _ & _ & _ & Hmt);
    destruct (unmarked_frame i s e) as (Hu & _ & _ & _ & _ & Hut);
    pose proof (lookup_lt_Some _ _ _ Hs) as Hlt.
  - eapply finalize_no_token; [|done|by rewrite Hmt]. rewrite Hm. by apply list_lookup_insert_eq.
  - by rewrite <- Ht, <- Hmt.
  - by rewrite Hut.
  - eapply finalize_no_token; [|done|by rewrite Hut]. rewrite Hu. by apply list_lookup_insert_eq.
Qed.

(** An upgrade suspends control.  While the upgrade client of an endpoint is
    active, as it is after an accepted upload, verification or reboot
    ([accepted_active]), the endpoint gives out no token for a command and accepts no operation but
    reading device information or settings and the emergency stop; and every
    pass of its owner ends with no lease held, even one that was held or being
    renewed before. *)
Theorem upgrade_suspends_control {S} `{BulkSender S} (u : FciUpgradeClient S) e :
  client_active u = true ->
  fst (s_commandToken (client_active u) e) = kBusy /\
  (forall clock kind timeout request internal, upgrade_safe kind = false ->
     s_submit (client_active u) clock kind timeout request internal e = ((kBusy, 0), e)) /\
  (forall start_rpc submit_upgrading clock submit_clock now,
     let e' := snd (s_progress start_rpc (client_active u) submit_upgrading clock submit_clock now e) in
     l_token (m_lease e') = 0 /\ holds_lease (m_lease e') = false).
Proof.
  intros ->. split; [done|]. split.
  - intros clock kind timeout request internal Hk. unfold s_submit. by rewrite Hk.
  - intros start_rpc su clock sc now. cbv zeta. unfold s_progress.
    assert (l_token (m_lease (snd (s_startNext start_rpc clock now
      (with_lease lease0 (expire_lease now (expire_queue clock now e)))))) = 0) as Ht
      by (by apply startNext_no_token).
    split; [exact Ht|]. unfold holds_lease. rewrite Ht. by destruct (l_state _).
Qed.

(** Accepted jobs make the client active. *)
Lemma accepted_active {S} `{BulkSender S} (u u' : FciUpgradeClient S) :
  (forall image o clock, startUpload image o clock u = (UpdateError.kNone, u') -> client_active u' = true) /\
  (beginVerification u = (UpdateError.kNone, u') -> client_active u' = true) /\
  (forall mode timeout v clock, reboot_begin mode timeout v clock u = (None, u') -> client_active u' = true).
Proof.
  split; [|split].
  - intros image o clock. unfold startUpload.
    match goal with |- context [if ?b then (UpdateError.kInvalidArgument, _) else _] => destruct b; [done|] end.
    destruct (negb _); [done|]. destruct (busy _ _); [done|]. by intros [= <-].
  - unfold beginVerification. destruct (negb _); [done|]. destruct (busy _ _); [done|].
    intros [= <-]. unfold client_active. by rewrite orb_true_r.
  - intros mode timeout v clock. unfold reboot_begin. destruct (rb_calling _); [done|].
    match goal with |- context [if ?b then (Some (reboot_result UpdateError.kInvalidArgument), _) else _] =>
      destruct b; [done|] end.
    destruct (negb _); [done|]. destruct (busy _ _); [done|]. intros [= <-].
    unfold client_active. cbn. by rewrite orb_true_r.
Qed.

(** ** A concrete sender

    It asks for one chunk after the other and counts a chunk as acknowledged
    when it was sent. *)

Record sample_sender := {
  ss_descriptor : option wl_bulk_descriptor_t;
  ss_offset : Z;
  ss_aborted : bool
}.

Definition sample_acquire (s : sample_sender) : option wl_bulk_sender_action_t :=
  match ss_descriptor s with
  | Some d =>
      if ss_aborted s || (ss_offset s >=? bd_total_length d) then None
      else Some {| ba_phase := WL_BULK_PHASE_CHUNK; ba_descriptor := d; ba_offset := ss_offset s;
        ba_length := Z.min (bd_requested_chunk_size d) (bd_total_length d - ss_offset s);
        ba_abort_reason := 0 |}
  | None => None
  end.

#[export] Instance sample_bulk : BulkSender sample_sender := {|
  wl_bulk_sender_zero := {| ss_descriptor := None; ss_offset := 0; ss_aborted := false |};
  wl_bulk_sender_init _ _ _ _ := {| ss_descriptor := None; ss_offset := 0; ss_aborted := false |};
  wl_bulk_sender_start d _ := (true, {| ss_descriptor := Some d; ss_offset := 0; ss_aborted := false |});
  wl_bulk_sender_on_status _ _ s := s;
  wl_bulk_sender_poll _ s := s;
  wl_bulk_sender_get_result s :=
    {| br_state :=
         if ss_aborted s then WL_BULK_SENDER_ABORTED
         else match ss_descriptor s with
              | Some d => if ss_offset s >=? bd_total_length d then WL_BULK_SENDER_COMPLETED
                          else WL_BULK_SENDER_RUNNING
              | None => WL_BULK_SENDER_RUNNING
              end;
       br_next_offset := ss_offset s; br_status := 0 |};
  wl_bulk_sender_get_stats _ := (0, 0);
  wl_bulk_sender_request_abort _ s :=
    {| ss_descriptor := ss_descriptor s; ss_offset := ss_offset s; ss_aborted := true |};
  wl_bulk_sender_action_acquire s := (sample_acquire s, s);
  wl_bulk_sender_action_submitted a _ s :=
    {| ss_descriptor := ss_descriptor s; ss_offset := ss_offset s + ba_length a;
       ss_aborted := ss_aborted s |};
  wl_bulk_sender_action_defer _ s := s;
  wl_crc32c l := fold_left Z.add l 0
|}.

(** ** Runs *)

Abbreviation sample_state := (@upgrade_state wire_state sample_sender).

Definition upgrade_start : sample_state :=
  {| us_client := client0; us_link := recorded0 wire0; us_since := 0 |}.

(** An event, or an answer of the peer. *)
Definition run_action (s : sample_state) (a : upgrade_event + (wire_state -> wire_state))
    : sample_state :=
  match a with
  | inl ev =>
      {| us_client := fst (apply_event ev (us_client s) (us_link s));
         us_link := snd (apply_event ev (us_client s) (us_link s));
         us_since := since ev (us_client s) (us_link s) (us_since s) |}
  | inr f =>
      {| us_client := us_client s; us_link := with_link (f (re_link (us_link s))) (us_link s);
         us_since := us_since s |}
  end.

Lemma run_action_reachable l : upgrade_reachable (fold_left run_action l upgrade_start).
Proof.
  exists wire0. generalize (steps_refl upgrade_step upgrade_start).
  fold upgrade_start. generalize upgrade_start at 2 4. induction l as [|a l IH]; intros s Hs; [exact Hs|].
  apply IH. eapply steps_trans; [exact Hs|]. eapply steps_cons; [|constructor].
  destruct s as [u w n], a as [ev|f]; cbn [run_action]; [apply step_event|apply step_link].
Qed.

Lemma wire_nonzero : nonzero_ids (W := wire_state).
Proof.
  intros req resp timeout now w w' id. cbn. unfold wire_begin.
  destruct (Z.eqb_spec (wr_next w) 0); by intros [= <- _].
Qed.

Lemma wire_bind_has_slot : bind_has_slot (V := wire_state).
Proof. by intros id handle w w'. Qed.

(** A reboot: requested, accepted, and seen to happen. *)
Definition reboot_answer : wire_state -> wire_state :=
  answer 1 WL_RPC_CLIENT_COMPLETED 0 [8; 1; 16; 0; 24; 4].
Definition reboot_asked : list (upgrade_event + (wire_state -> wire_state)) :=
  [inl (EvConnected true); inl (EvReboot kTryBoot 5000 false 100); inl (EvPass 110)].
Definition after_asked : sample_state := fold_left run_action reboot_asked upgrade_start.
Definition after_answer : sample_state := run_action after_asked (inr reboot_answer).
Definition after_accepted : sample_state := run_action after_answer (inl (EvPass 120)).
Definition after_reboot : sample_state :=
  fold_left run_action (reboot_asked ++ [inr reboot_answer; inl (EvPass 120); inl (EvPass 130);
    inl (EvTransport false 140)]) upgrade_start.

Example reboot_run :
  wr_sent (re_link (us_link after_asked)) = [(28932, [8; 1; 16; 4], true)] /\
  re_given (us_link after_asked) = [(28932, [8; 1; 16; 4])] /\
  rr_request_accepted (rb_result (uc_reboot (us_client after_accepted))) = true /\
  fst (reboot_end (us_client after_reboot)) =
    {| rr_error := UpdateError.kNone; rr_device_status := 0; rr_request_accepted := true;
       rr_departure_observed := true |}.
Proof. by vm_compute. Qed.

Lemma reboot_once_witness :
  rb_done (uc_reboot (us_client after_reboot)) = true /\
  requests (us_link after_reboot) = 1%nat /\
  rr_error (rb_result (uc_reboot (us_client after_reboot))) = UpdateError.kNone.
Proof.
  assert (rb_done (uc_reboot (us_client after_reboot)) = true) as Hd by by vm_compute.
  destruct (reboot_once wire_nonzero wire_bind_has_slot after_reboot (run_action_reachable _))
    as [_ H2].
  destruct (H2 Hd) as [Hr Ha]. split; [exact Hd|]. split.
  - apply Ha. by vm_compute.
  - apply Hr. split; by vm_compute.
Defined.

Lemma reboot_accepted_witness :
  rb_pending (uc_reboot (us_client after_accepted)) = true /\
  exists r data response,
    client_inspect reboot_rpc 1 (us_link after_answer) = Ok r /\ rc_application_status r = 0 /\
    rc_response_data r = Some data /\
    wlc_decode reboot_response_desc data (wlc_clear reboot_response_desc []) = (WL_CODEC_OK, response) /\
    wire_int reboot_response_desc "operation_id" response = (true, rc_operation_id r) /\
    wire_int reboot_response_desc "mode" response = (true, kTryBoot).
Proof.
  refine (reboot_accepted 120 (uc_reboot (us_client after_answer)) (us_link after_answer)
    (us_link after_accepted) (uc_reboot (us_client after_accepted)) _ _ _); by vm_compute.
Defined.

(** An upload of ten bytes in chunks of eight. *)
Definition sample_image : bytes := [1; 2; 3; 4; 5; 6; 7; 8; 9; 10].
(** Transfer 5, alignment 4, chunks of 8. *)
Definition start_answer : wire_state -> wire_state :=
  answer 1 WL_RPC_CLIENT_COMPLETED 0 [8; 1; 16; 0; 29; 0; 0; 0; 5; 40; 4; 48; 8].
Definition upload_running : sample_state :=
  fold_left run_action [inl (EvConnected true); inl (EvUpload sample_image options0 100);
    inl (EvPass 110); inr start_answer; inl (EvPass 120); inl (EvPass 130)] upgrade_start.

Example upload_run :
  fp_state (progress (us_client upload_running)) = UploadState.kUploading /\
  map (fun m => fst (fst m)) (wr_sent (re_link (us_link upload_running))) = [28930; 28705] /\
  progress (us_client (fold_left run_action [inl (EvPass 140); inl (EvPass 150)] upload_running)) =
    {| fp_state := UploadState.kCompleted; fp_error := UpdateError.kNone; fp_device_status := 0;
       fp_total_bytes := 10; fp_acknowledged_bytes := 10; fp_transfer_id := 5; fp_retries := 0;
       fp_busy_responses := 0 |}.
Proof. by vm_compute. Qed.

Lemma upgrade_exclusive_witness :
  active (progress (us_client upload_running)) = true /\
  rb_pending (uc_reboot (us_client upload_running)) = false /\
  uc_verifying (us_client upload_running) = false.
Proof.
  assert (active (progress (us_client upload_running)) = true) as Ha by by vm_compute.
  split; [exact Ha|].
  destruct (proj1 (upgrade_exclusive wire_nonzero wire_bind_has_slot upload_running (run_action_reachable _)) Ha)
    as (Hp & Hv & _).
  split; [exact Hp|exact Hv].
Defined.

Lemma upgrade_deadlines_witness :
  active (progress (us_client upload_running)) = true /\
  let r := progress_upload (u32 (100 + 120000)) (uc_upload (us_client upload_running))
    (us_link upload_running) in
  fp_state (up_progress (fst r)) = UploadState.kFailed /\
  fp_error (up_progress (fst r)) = UpdateError.kTimeout /\ up_image (fst r) = [].
Proof.
  assert (active (progress (us_client upload_running)) = true) as Ha by by vm_compute.
  split; [exact Ha|]. cbv zeta.
  destruct (upgrade_deadlines (us_client upload_running) (us_link upload_running) 120000 ltac:(lia))
    as (_ & _ & Hu & _).
  apply (Hu Ha) with (w' := snd (progress_upload (u32 (100 + 120000))
    (uc_upload (us_client upload_running)) (us_link upload_running))); [by vm_compute|].
  by vm_compute.
Defined.

Definition sample_action : wl_bulk_sender_action_t :=
  {| ba_phase := WL_BULK_PHASE_CHUNK;
     ba_descriptor := {| bd_transfer_id := 5; bd_total_length := 10; bd_requested_chunk_size := 8;
       bd_object_crc32c := 55 |};
     ba_offset := 8; ba_length := 2; ba_abort_reason := 0 |}.

Lemma chunk_sent_witness :
  exists message n payload,
    action_message sample_image sample_action = Some (bulk_chunk_desc, 28705, message, false) /\
    wlc_encode bulk_chunk_desc message 2048 = (Ok n, payload) /\ n <= 2048 /\
    forall old, wlc_decode bulk_chunk_desc payload old = (WL_CODEC_OK, chunk_slots 5 8 [9; 10]).
Proof.
  refine (chunk_sent sample_image sample_action 2048 _ _ eq_refl _ _ _ _ _); try (unfold in_u; cbn; lia).
  by apply bytes_okb_spec.
Defined.

Lemma upgrade_suspends_control_witness :
  holds_lease (m_lease run_held) = true /\ client_active (us_client upload_running) = true /\
  fst (s_commandToken (client_active (us_client upload_running)) run_held) = kBusy /\
  holds_lease (m_lease (snd (s_progress (fun _ _ _ => WL_OK) (client_active (us_client upload_running))
    false 2000 2000 2000 run_held))) = false.
Proof.
  assert (client_active (us_client upload_running) = true) as Ha by by vm_compute.
  destruct (upgrade_suspends_control (us_client upload_running) run_held Ha) as (H1 & _ & H3).
  split; [by vm_compute|]. split; [exact Ha|]. split; [exact H1|].
  exact (proj2 (H3 (fun _ _ _ => WL_OK) false 2000 2000 2000)).
Defined.
