(* ===== verification/Prog.v ===== *)
(** * Programs that call out

    A routine that talks to the clock, the endpoint or the USB stack is a tree:
    it returns, or makes a call and goes on with the answer.  What its callers
    can observe is the list of calls with their answers; [runs p l a] holds
    when [p] can make the calls of [l] and return [a].  Statements about such
    a routine quantify over [l]: over every way the outside can behave. *)

From Stdlib Require Import Sorted.
From S2P Require Import Prelude.

Create HintDb only.

Inductive prog (E : Type -> Type) (A : Type) : Type :=
| Ret (a : A)
| Call {R : Type} (c : E R) (k : R -> prog E A).
Arguments Ret {E A} a.
Arguments Call {E A R} c k.

Inductive event (E : Type -> Type) : Type :=
| Event {R : Type} (c : E R) (r : R).
Arguments Event {E R} c r.

Section prog.
Context {E : Type -> Type}.

Fixpoint prog_bind {A B} (f : A -> prog E B) (p : prog E A) : prog E B :=
  match p with
  | Ret a => f a
  | Call c k => Call c (fun r => prog_bind f (k r))
  end.

#[export] Instance prog_ret : MRet (prog E) := fun A a => Ret a.
#[export] Instance prog_mbind : MBind (prog E) := fun A B f p => prog_bind f p.

Definition call {R} (c : E R) : prog E R := Call c Ret.

Fixpoint runs {A} (p : prog E A) (l : list (event E)) (a : A) : Prop :=
  match p with
  | Ret a' => l = [] /\ a' = a
  | Call c k =>
      match l with
      | [] => False
      | ev :: l' => exists r, ev = Event c r /\ runs (k r) l' a
      end
  end.

Lemma runs_ret {A} (a b : A) l : runs (mret a) l b <-> l = [] /\ a = b.
Proof. done. Qed.

Lemma runs_bind {A B} (p : prog E A) (f : A -> prog E B) l b :
  runs (p ≫= f) l b <-> exists l1 l2 a, l = l1 ++ l2 /\ runs p l1 a /\ runs (f a) l2 b.
Proof.
  revert l. induction p as [a|R c k IH]; intros l.
  - change (Ret a ≫= f) with (f a). split.
    + intros Hr. by exists [], l, a.
    + by intros (l1 & l2 & a' & -> & [-> ->] & Hr).
  - change (Call c k ≫= f) with (Call c (fun r => k r ≫= f)). cbn [runs]. split.
    + destruct l as [|ev l]; [done|]. intros (r & -> & (l1 & l2 & a & -> & H1 & H2)%IH).
      exists (Event c r :: l1), l2, a. split; [done|]. split; [by exists r|done].
    + intros ([|ev l1] & l2 & a & -> & H1 & H2); [done|]. destruct H1 as (r & -> & H1).
      exists r. split; [done|]. apply IH. by exists l1, l2, a.
Qed.

Lemma runs_call {R B} (c : E R) (f : R -> prog E B) l b :
  runs (call c ≫= f) l b <-> exists r l', l = Event c r :: l' /\ runs (f r) l' b.
Proof.
  change (call c ≫= f) with (Call c f). cbn [runs]. destruct l as [|ev l].
  - split; [done|]. by intros (r & l' & [=] & _).
  - split; [intros (r & -> & Hr); by exists r, l|intros (r & l' & [= -> ->] & Hr); by exists r].
Qed.

(** The calls of a list that satisfy a test. *)
Fixpoint count_calls (P : event E -> bool) (l : list (event E)) : nat :=
  match l with
  | [] => 0
  | ev :: l' => (if P ev then 1 else 0) + count_calls P l'
  end.

Lemma count_calls_app P l1 l2 : count_calls P (l1 ++ l2) = (count_calls P l1 + count_calls P l2)%nat.
Proof. induction l1 as [|ev l1 IH]; [done|]. cbn. rewrite IH. lia. Qed.

Lemma count_calls_none P l : Forall (fun ev => P ev = false) l -> count_calls P l = 0%nat.
Proof. induction 1 as [|ev l Hev _ IH]; [done|]. cbn. by rewrite Hev. Qed.

(** Every call that a program can make satisfies [P]. *)
Fixpoint only (P : event E -> Prop) {A} (p : prog E A) : Prop :=
  match p with
  | Ret _ => True
  | Call c k => forall r, P (Event c r) /\ only P (k r)
  end.

Lemma only_ret P {A} (a : A) : only P (mret a).
Proof. done. Qed.

Lemma only_call P {R A} (c : E R) (f : R -> prog E A) :
  (forall r, P (Event c r)) -> (forall r, only P (f r)) -> only P (call c ≫= f).
Proof. intros Hc Hf r. split; [apply Hc|apply Hf]. Qed.

Lemma only_bind P {A B} (p : prog E A) (f : A -> prog E B) :
  only P p -> (forall a, only P (f a)) -> only P (p ≫= f).
Proof.
  induction p as [a|R c k IH]; intros Hp Hf; [apply Hf|]. intros r. destruct (Hp r) as [Hc Hk].
  split; [done|]. by apply IH.
Qed.

Lemma only_runs P {A} (p : prog E A) l a : only P p -> runs p l a -> Forall P l.
Proof.
  revert l. induction p as [b|R c k IH]; intros l Hp; [intros [-> _]; constructor|].
  destruct l as [|ev l]; [done|]. intros (r & -> & Hr). destruct (Hp r) as [Hc Hk].
  constructor; [done|]. by apply (IH r).
Qed.

(** Every call that a program can make is allowed after what it did before,
    and what it returns satisfies [post]. *)
Fixpoint safe (ok : list (event E) -> event E -> Prop) {A} (h : list (event E)) (p : prog E A)
    (post : list (event E) -> A -> Prop) : Prop :=
  match p with
  | Ret a => post h a
  | Call c k => forall r, ok h (Event c r) /\ safe ok (h ++ [Event c r]) (k r) post
  end.

Lemma safe_bind ok {A B} h (p : prog E A) (f : A -> prog E B) mid post :
  safe ok h p mid -> (forall h' a, mid h' a -> safe ok h' (f a) post) -> safe ok h (p ≫= f) post.
Proof.
  revert h. induction p as [a|R c k IH]; intros h Hp Hf; [by apply Hf|]. intros r.
  destruct (Hp r) as [Hc Hk]. split; [done|]. by apply IH.
Qed.

Lemma safe_mono ok {A} h (p : prog E A) (post post' : list (event E) -> A -> Prop) :
  safe ok h p post -> (forall h' a, post h' a -> post' h' a) -> safe ok h p post'.
Proof.
  revert h. induction p as [a|R c k IH]; intros h Hp Hi; [by apply Hi|]. intros r.
  destruct (Hp r) as [Hc Hk]. split; [done|]. by apply (IH r).
Qed.

Lemma safe_runs ok {A} h (p : prog E A) post l a :
  safe ok h p post -> runs p l a ->
  (forall l1 ev l2, l = l1 ++ ev :: l2 -> ok (h ++ l1) ev) /\ post (h ++ l) a.
Proof.
  revert h l. induction p as [b|R c k IH]; intros h l Hp.
  - intros [-> ->]. split; [by intros [|? ?] ? ?|by rewrite app_nil_r].
  - destruct l as [|ev l]; [done|]. intros (r & -> & Hr). destruct (Hp r) as [Hc Hk].
    destruct (IH r _ _ Hk Hr) as [Hok Hpost]. rewrite <- app_assoc in Hpost. split; [|done].
    intros [|ev' l1] ev'' l2 [= <- ->]; [by rewrite app_nil_r|].
    specialize (Hok l1 ev'' l2 eq_refl). by rewrite <- app_assoc in Hok.
Qed.

(** Running a program against an environment with a state. *)
Context {S : Type} (answer : forall R, E R -> S -> R * S).

Fixpoint interp {A} (p : prog E A) (s : S) : list (event E) * A :=
  match p with
  | Ret a => ([], a)
  | Call c k =>
      let '(r, s') := answer _ c s in
      let '(l, a) := interp (k r) s' in (Event c r :: l, a)
  end.

Lemma interp_runs {A} (p : prog E A) s : runs p (fst (interp p s)) (snd (interp p s)).
Proof.
  revert s. induction p as [a|R c k IH]; intros s; cbn; [done|].
  destruct (answer R c s) as [r s']. specialize (IH r s').
  destruct (interp (k r) s') as [l a]. cbn in *. by exists r.
Qed.
End prog.

(** *** Programs over a part of the calls *)
Section lift.
Context {E F : Type -> Type} (embed : forall R, E R -> F R).

Fixpoint lift {A} (p : prog E A) : prog F A :=
  match p with
  | Ret a => Ret a
  | Call c k => Call (embed _ c) (fun r => lift (k r))
  end.

Definition lift_event (ev : event E) : event F := match ev with Event c r => Event (embed _ c) r end.

Lemma lift_runs {A} (p : prog E A) l a :
  runs (lift p) l a -> exists l', l = map lift_event l' /\ runs p l' a.
Proof.
  revert l. induction p as [b|R c k IH]; intros l.
  - intros [-> ->]. by exists [].
  - destruct l as [|ev l]; [done|]. intros (r & -> & (l' & -> & H)%IH). exists (Event c r :: l').
    split; [done|]. by exists r.
Qed.
End lift.

(** The calls of a program, by its syntax. *)
Ltac solve_only :=
  repeat first
    [ apply only_ret
    | apply only_call; [done|intros ?]
    | match goal with
      | |- only _ (if ?b then _ else _) => destruct b
      | |- only _ (match ?x with _ => _ end) => destruct x
      | |- only _ (let '(_, _) := ?x in _) => destruct x
      end
    | solve [auto with only]
    | apply only_bind; [|intros ?]
    | done ].

(** *** Clocks

    The clock readings that a call returns. *)
Class Clock (E : Type -> Type) := reading : event E -> list Z.

Section clock.
Context `{Clock E}.

Definition readings (l : list (event E)) : list Z := flat_map reading l.

(** The clock advances from each reading to the next. *)
Definition advancing (prev : Z) (l : list (event E)) : Prop := StronglySorted Z.lt (prev :: readings l).

Lemma advancing_app prev l1 l2 : advancing prev (l1 ++ l2) -> advancing prev l2.
Proof.
  unfold advancing, readings. rewrite flat_map_app. intros [Hs Hl]%StronglySorted_inv.
  apply Forall_app in Hl as [_ Hl].
  induction (flat_map reading l1) as [|x xs IH]; [by constructor|].
  apply IH. by apply StronglySorted_inv in Hs as [Hs _].
Qed.

Lemma advancing_app_l prev l1 l2 : advancing prev (l1 ++ l2) -> advancing prev l1.
Proof.
  unfold advancing, readings. rewrite flat_map_app.
  generalize (flat_map reading l1) as xs. intros xs. revert prev.
  induction xs as [|x xs IH]; intros prev; [repeat constructor|].
  intros [Hs Hl]%StronglySorted_inv. cbn in Hs, Hl. constructor; [by apply IH|].
  apply (Forall_app _ (x :: xs)) in Hl. apply Hl.
Qed.

Lemma advancing_reading prev now l1 l2 :
  readings l1 = [now] -> advancing prev (l1 ++ l2) -> prev < now /\ advancing now l2.
Proof.
  unfold advancing, readings. rewrite flat_map_app. intros ->. cbn.
  intros [Hs Hl]%StronglySorted_inv. by apply Forall_inv in Hl.
Qed.

Lemma sorted_advancing l : StronglySorted Z.lt (readings l) -> exists prev, advancing prev l.
Proof.
  unfold advancing. intros Hs. destruct (readings l) as [|x xs]; [exists 0; repeat constructor|].
  exists (x - 1). constructor; [done|]. apply StronglySorted_inv in Hs as [_ Hs].
  constructor; [lia|]. eapply List.Forall_impl; [|exact Hs]. cbn. lia.
Qed.

Lemma last_readings_app l1 l2 t : list.last (readings l2) = Some t -> list.last (readings (l1 ++ l2)) = Some t.
Proof. unfold readings. rewrite flat_map_app, last_app. by intros ->. Qed.
End clock.

(** One call of a program whose trace is known. *)
Ltac step_call H r :=
  let l := fresh "l" in
  apply runs_call in H; destruct H as (r & l & -> & H).

(** *** Walking through a program that is to be safe *)
Lemma safe_call {E} ok h {R A} (c : E R) (f : R -> prog E A) post :
  (forall r, ok h (Event c r)) -> (forall r, safe ok (h ++ [Event c r]) (f r) post) ->
  safe ok h (call c ≫= f) post.
Proof. intros Hc Hf r. split; [apply Hc|apply Hf]. Qed.

Lemma safe_tail {E} ok h {R} (c : E R) post :
  (forall r, ok h (Event c r)) -> (forall r, post (h ++ [Event c r]) r) -> safe ok h (call c) post.
Proof. intros Hc Hp r. split; [apply Hc|apply Hp]. Qed.

Lemma safe_ret {E} ok h {A} (a : A) (post : list (event E) -> A -> Prop) :
  post h a -> safe ok h (mret a) post.
Proof. done. Qed.

Lemma safe_ret_bind {E} ok h {A B} (a : A) (f : A -> prog E B) post :
  safe ok h (f a) post -> safe ok h (mret a ≫= f) post.
Proof. done. Qed.

Lemma safe_assoc {E} ok h {A B C} (p : prog E A) (f : A -> prog E B) (g : B -> prog E C) post :
  safe ok h (p ≫= (fun a => f a ≫= g)) post -> safe ok h ((p ≫= f) ≫= g) post.
Proof.
  revert h. induction p as [a|R c k IH]; intros h Hs; [done|]. intros r. destruct (Hs r) as [Hc Hk].
  split; [done|]. by apply IH.
Qed.

(** Goes through the calls and the branches in order, by the syntax. *)
Ltac walk_safe :=
  repeat match goal with
  | |- safe _ _ (call _ ≫= _) _ => apply safe_call; [intros ?|intros ?]
  | |- safe _ _ (call _) _ => apply safe_tail; [intros ?|intros ?]
  | |- safe _ _ (mret _) _ => apply safe_ret
  | |- safe _ _ (mret _ ≫= _) _ => apply safe_ret_bind
  | |- safe _ _ ((_ ≫= _) ≫= _) _ => apply safe_assoc
  | |- safe _ _ ((if ?b then _ else _) ≫= _) _ => destruct b eqn:?
  | |- safe _ _ ((match ?x with _ => _ end) ≫= _) _ => destruct x eqn:?
  | |- safe _ _ (if ?b then _ else _) _ => destruct b eqn:?
  | |- safe _ _ (match ?x with _ => _ end) _ => destruct x eqn:?
  | |- safe _ _ (let x := ?t in _) _ => cbv zeta
  end.

(** A program all of whose calls satisfy [P], as a part of a safe one. *)
Lemma safe_only {E} (P : event E -> Prop) ok {A} (p : prog E A) post : forall h,
  only P p -> (forall h ev, P ev -> ok h ev) ->
  (forall l a, Forall P l -> post (h ++ l) a) -> safe ok h p post.
Proof.
  induction p as [a|R c k IH]; intros h Hp Hok Hpost.
  - rewrite <- (app_nil_r h). by apply (Hpost []).
  - intros r. destruct (Hp r) as [Hc Hk]. split; [by apply Hok|]. apply IH; [done|done|].
    intros l a Hl. rewrite <- app_assoc. apply Hpost. by constructor.
Qed.

Lemma safe_conj {E} (ok : list (event E) -> event E -> Prop) {A} (p : prog E A) post1 post2 : forall h,
  safe ok h p post1 -> safe ok h p post2 -> safe ok h p (fun h' a => post1 h' a /\ post2 h' a).
Proof.
  induction p as [a|R c k IH]; intros h H1 H2; [done|]. intros r.
  destruct (H1 r) as [Hok K1], (H2 r) as [_ K2]. split; [done|]. by apply IH.
Qed.

(** What a safe program adds to the history. *)
Lemma safe_adds {E} (P : event E -> Prop) ok {A} (p : prog E A) post : forall h,
  only P p -> safe ok h p post ->
  safe ok h p (fun h' a => post h' a /\ exists l, h' = h ++ l /\ Forall P l).
Proof.
  induction p as [a|R c k IH]; intros h Hp Hs.
  - split; [done|]. exists []. by rewrite app_nil_r.
  - intros r. destruct (Hp r) as [Hc Hk], (Hs r) as [Hok Hr]. split; [done|].
    eapply safe_mono; [by apply IH|]. intros h' a [Hpost (l & -> & Hl)]. split; [done|].
    exists (Event c r :: l). rewrite <- app_assoc. split; [done|]. by constructor.
Qed.

(** What holds of the history can be kept beside the calls. *)
Definition any {E} (_ : list (event E)) (_ : event E) : Prop := True.

(** A run whose calls and answers are given. *)
Ltac run_trace :=
  lazymatch goal with
  | |- runs ?p ?l ?a =>
      let p' := eval lazy head in p in
      let l' := eval lazy head in l in
      change_no_check (runs p' l' a);
      lazymatch p' with
      | Call _ _ => cbn [runs]; eexists; split; [reflexivity|run_trace]
      | Ret _ => cbn [runs]; split; reflexivity
      end
  end.
