(* ===== verification/RuntimeCalls.v ===== *)
(** * What the generated runtime calls, and what it answers

    The runtime of [generated/wirelink/host] is glue between the codec and the
    link library: its functions are programs ([Prog.v]) over the calls they
    make into that library, into the message cells and into the application.
    Nothing is assumed of an answer, unless a theorem says so.  Each call is
    named after the library function, with its arguments. *)

From S2P Require Import Prelude WlcWire WlcSchema WlcCodec FciMessages Endpoint EndpointOps FciRpc Prog.

(** ** Events *)

Inductive wl_event_type :=
| WL_EVT_NONE | WL_EVT_UNRELIABLE_RX | WL_EVT_RELIABLE_RX
| WL_EVT_TX_SUCCESS | WL_EVT_TX_TIMEOUT | WL_EVT_TX_FAILED | WL_EVT_OTHER.
#[global] Instance wl_event_type_eq_dec : EqDecision wl_event_type.
Proof. solve_decision. Defined.

Record wl_event_t := {
  ev_type : wl_event_type;
  ev_message_id : Z;
  ev_payload : bytes;
  ev_handle : Z
}.

Definition is_rx (e : wl_event_t) : bool :=
  match ev_type e with WL_EVT_UNRELIABLE_RX | WL_EVT_RELIABLE_RX => true | _ => false end.
Definition is_tx_end (e : wl_event_t) : bool :=
  match ev_type e with WL_EVT_TX_SUCCESS | WL_EVT_TX_TIMEOUT | WL_EVT_TX_FAILED => true | _ => false end.

(** ** The server's side of a call *)

Record wl_rpc_request_identity_t := {
  id_peer_session : Z;
  id_operation_id : Z;
  id_request_message_id : Z;
  id_response_message_id : Z
}.

Record wl_rpc_server_request_t := {
  sr_identity : wl_rpc_request_identity_t;
  sr_generation : Z
}.

Record wl_rpc_server_response_t := {
  sp_identity : wl_rpc_request_identity_t;
  sp_application_status : Z;
  sp_data : bytes
}.

Record wl_rpc_peer_observation_t := {
  po_session : Z;
  po_changed : bool
}.

(** ** Asynchronous calls *)

(** [wl_rpc_completion_t]. *)
Record rpc_completion := {
  cp_status : wl_rpc_status;
  cp_rejection : Z;
  cp_local_error : wl_result;
  cp_codec_error : wl_codec_status;
  cp_runtime_error : wl_rpc_err
}.

(** Who is told: an application's callback with its context, or the frame of a
    synchronous call (named by a number). *)
Inductive rpc_callback := CbApplication (callback user_data : Z) | CbSync (frame : Z).
#[global] Instance rpc_callback_eq_dec : EqDecision rpc_callback.
Proof. solve_decision. Defined.

(** [wl_rpc_async_observer_t]: [prepare] and [notify] are those of an RPC. *)
Record rpc_observer := { ob_rpc : rpc; ob_callback : rpc_callback }.

(** ** The cells of retained messages *)

Inductive latest := ArmStatusLatest | MotorFeedbackLatest | ArmDiagnosticsLatest.
#[global] Instance latest_eq_dec : EqDecision latest.
Proof. solve_decision. Defined.

(** The table and the id of the message that a cell retains. *)
Definition latest_desc (k : latest) : wlc_desc :=
  match k with
  | ArmStatusLatest => arm_status_desc
  | MotorFeedbackLatest => motor_feedback_desc
  | ArmDiagnosticsLatest => arm_diagnostics_desc
  end.
Definition latest_message_id (k : latest) : Z :=
  match k with ArmStatusLatest => 24577 | MotorFeedbackLatest => 24578 | ArmDiagnosticsLatest => 24580 end.

(** The span of a claim on a cell. *)
Record cell_span := { cs_address : Z; cs_size : Z }.

(** [wl_latest_view_t]: the address and the contents of the value, absent when it
    is null. *)
Record wl_latest_view_t := {
  lv_value : option (Z * wstruct);
  lv_size : Z;
  lv_generation : Z
}.

(** ** Results

    A result is [fci_device_runtime_result_t]; the members of its RPC detail
    that only a server's build sets ([rpc_disposition], [peer_changed]) are
    left out, since this build is compiled without the server's dispatch. *)

Inductive server_detail :=
| SERVER_NONE
| SERVER_REQUEST (r : wl_rpc_server_request_t)
| SERVER_RESPONSE (r : wl_rpc_server_response_t).

(** [fci_device_runtime_rpc_detail_t]. *)
Record rpc_detail := {
  d_codec_status : wl_codec_status;
  d_rpc_result : wl_rpc_err;
  d_core_result : wl_result;
  d_application_result : Z;
  d_operation_id : Z;
  d_handle : Z;
  d_payload_length : Z;
  d_server : server_detail
}.

(** [fci_device_runtime_detail_t] with its [detail_kind]. *)
Inductive runtime_detail :=
| DETAIL_NONE
| DETAIL_RETAINED (codec_status : wl_codec_status) (storage_result abort_result : wl_result)
| DETAIL_DIRECT (codec_status : wl_codec_status) (application_result : Z)
| DETAIL_RPC (d : rpc_detail).

Record runtime_result := {
  r_domain : fci_device_runtime_domain;
  r_event_type : wl_event_type;
  r_message_id : Z;
  r_detail : runtime_detail;
  r_event_consumed : bool
}.

(** ** Calls

    A function with an out-parameter answers with it beside its result. *)

Inductive hook :=
| HEvent (e : wl_event_t) (now : Z)
| HProgress (now : Z).

Inductive rt_call : Type -> Type :=
(* the link *)
| Wl_link_session_id : rt_call Z
| Wl_event_release (e : wl_event_t) : rt_call unit
| Wl_tx_take (handle : Z) : rt_call wl_result
| Wl_tx_cancel (handle : Z) : rt_call unit
| Wl_tx_payload_claim (message_id : Z) (reliable : bool) : rt_call (wl_result * Z)
| Wl_tx_payload_abort : rt_call unit
| Wl_tx_payload_commit (payload : bytes) (now : Z) : rt_call (wl_result * Z)
| Wl_send_reliable (message_id : Z) (data : bytes) (now : Z) : rt_call (wl_result * Z)
| Wl_send_unreliable (message_id : Z) (data : bytes) : rt_call wl_result
(* the calls of the client *)
| Wl_rpc_client_begin (req resp timeout now : Z) : rt_call (wl_rpc_err * Z)
| Wl_rpc_client_link_failed (operation_id : Z) (link_result : wl_result) : rt_call wl_rpc_err
| Wl_rpc_client_bind_tx (operation_id handle : Z) : rt_call wl_rpc_err
| Wl_rpc_client_get (operation_id : Z) : rt_call (res wl_rpc_err wl_rpc_client_result_t)
| Wl_rpc_client_get_handle (operation_id : Z) : rt_call (res wl_rpc_err Z)
| Wl_rpc_client_get_by_handle (handle : Z) : rt_call (res wl_rpc_err wl_rpc_client_result_t)
| Wl_rpc_client_release (operation_id : Z) : rt_call wl_rpc_err
| Wl_rpc_client_release_handle (handle : Z) : rt_call wl_rpc_err
| Wl_rpc_client_cancel_handle (handle : Z) : rt_call wl_rpc_err
| Wl_rpc_client_poll (now : Z) : rt_call (wl_rpc_err * Z)
| Wl_rpc_client_on_response (resp operation_id status : Z) (data : bytes) : rt_call wl_rpc_err
| Wl_rpc_client_on_tx_event (e : wl_event_t) : rt_call wl_rpc_err
| Wl_rpc_client_get_deadline_hint (now : Z) : rt_call (wl_rpc_err * Z)
| Wl_rpc_client_init (slots slot_count responses responses_size capacity next_operation_id : Z)
    : rt_call wl_rpc_err
(* the requests of the server *)
| Wl_rpc_server_on_tx_event (e : wl_event_t) : rt_call wl_rpc_err
| Wl_rpc_server_response_prepare (request : wl_rpc_server_request_t) : rt_call (wl_rpc_err * Z)
| Wl_rpc_server_response_commit (request : wl_rpc_server_request_t) (status : Z) (data : bytes) (now : Z)
    : rt_call (wl_rpc_err * wl_rpc_server_response_t)
| Wl_rpc_server_response_acquire : rt_call (res wl_rpc_err wl_rpc_server_response_t)
| Wl_rpc_server_response_defer (response : wl_rpc_server_response_t) : rt_call wl_rpc_err
| Wl_rpc_server_response_submitted (response : wl_rpc_server_response_t) (handle : Z) : rt_call wl_rpc_err
| Wl_rpc_server_response_sent (response : wl_rpc_server_response_t) : rt_call wl_rpc_err
| Wl_rpc_server_expired_acquire (now : Z) : rt_call (res wl_rpc_err wl_rpc_server_request_t)
| Wl_rpc_server_poll (now : Z) : rt_call (wl_rpc_err * Z)
| Wl_rpc_server_get_deadline_hint (now : Z) : rt_call (wl_rpc_err * Z)
| Wl_rpc_peer_observe (session : Z) : rt_call (wl_rpc_err * wl_rpc_peer_observation_t * list Z)
(* the asynchronous calls *)
| Wl_rpc_async_retire_tx (handle : Z) : rt_call bool
| Wl_rpc_async_submit (req resp timeout now : Z) (encode : Z -> Z -> Z -> res wl_result bytes)
    (observer : rpc_observer) : rt_call (wl_result * Z)
| Wl_rpc_async_cancel (async_call : Z) : rt_call wl_result
| Wl_rpc_async_cancel_complete (async_call : Z)
    : rt_call (list (rpc_observer * wl_rpc_client_result_t))
| Wl_rpc_async_service (now : Z)
    : rt_call (wl_result * Z * list (rpc_observer * wl_rpc_client_result_t))
| Wl_rpc_async_notification_deadline : rt_call Z
| Wl_rpc_async_init (slot_count incarnation : Z) : rt_call wl_result
| Wl_rpc_async_close : rt_call (wl_result * list (rpc_observer * wl_rpc_client_result_t))
(* the retained messages *)
| Wl_latest_write_claim (k : latest) : rt_call (wl_result * cell_span)
| Wl_latest_write_abort (k : latest) : rt_call wl_result
| Wl_latest_write_publish (k : latest) (value : wstruct) : rt_call wl_result
| Wl_latest_read_acquire (k : latest) : rt_call (wl_result * wl_latest_view_t)
| Wl_latest_init (k : latest) (address size generation : Z) : rt_call wl_result
| Wl_latest_read_release (k : latest) (view : wl_latest_view_t) : rt_call wl_result
(* the endpoint *)
| Wl_endpoint_link : rt_call bool
| Wl_endpoint_now : rt_call (wl_result * Z)
| Wl_endpoint_step (budget : Z) : rt_call (wl_result * list hook)
| Wl_endpoint_get_hint : rt_call (wl_result * (bool * Z))
| Wl_session_next (previous : Z) : rt_call (wl_result * Z)
| Wl_endpoint_init (session : Z) : rt_call wl_result
| Wl_endpoint_close : rt_call unit
| Allocate (size alignment : Z) : rt_call (option Z)
| Deallocate (address size alignment : Z) : rt_call unit
| Waiter_wait (deadline : Z) : rt_call wl_result
| Executor_invoke (frame timeout : Z) : rt_call (rpc_completion * option wstruct)
(* the application *)
| On_result (r : runtime_result) : rt_call unit
| Bulk_status_handler (message : wstruct) : rt_call Z
| Completion_callback (callback user_data : Z) (c : rpc_completion) (response : option wstruct)
    : rt_call unit
| Sync_notify (context : Z) (c : rpc_completion) : rt_call unit.

Abbreviation rtp := (prog rt_call).
