(* ===== verification/ManagedRpc.v ===== *)
(** * The managed RPC of the generated runtime

    [generated/wirelink/host/fci_device_runtime.c]: a call of protocol version 2
    as the client starts, inspects, decodes and releases it (for 19 of the 22
    RPCs the generator writes the block of lines 2986-3170, with the RPC's two
    message ids and tables), and as a server answers it. *)

From Stdlib Require Import String.
From S2P Require Import Prelude WlcWire WlcSchema WlcCodec WlcValue FciMessages DeviceTypes Endpoint EndpointOps FciRpc Prog RuntimeCalls.

(** ** Results *)

(** [fci_device_runtime_result]. *)
Definition fci_device_runtime_result (event : option wl_event_t) : runtime_result :=
  {| r_domain := FCI_DEVICE_RUNTIME_INVALID_ARGUMENT;
     r_event_type := match event with Some e => ev_type e | None => WL_EVT_NONE end;
     r_message_id := match event with Some e => ev_message_id e | None => 0 end;
     r_detail := DETAIL_NONE; r_event_consumed := false |}.

(** [fci_device_runtime_result_ok]. *)
Definition result_ok (r : runtime_result) : bool := bool_decide (r_domain r = FCI_DEVICE_RUNTIME_OK).

(** [fci_device_runtime_result_str]. *)
Definition fci_device_runtime_result_str (r : option runtime_result) : string :=
  match r with
  | None => "null result"
  | Some r =>
      match r_domain r with
      | FCI_DEVICE_RUNTIME_OK => "ok"
      | FCI_DEVICE_RUNTIME_NON_RX => "non-rx event"
      | FCI_DEVICE_RUNTIME_UNKNOWN_MESSAGE => "unknown message"
      | FCI_DEVICE_RUNTIME_MISSING_ROUTE => "missing route"
      | FCI_DEVICE_RUNTIME_MISSING_SCRATCH => "missing scratch"
      | FCI_DEVICE_RUNTIME_DELIVERY_MISMATCH => "delivery mismatch"
      | FCI_DEVICE_RUNTIME_CODEC_ERROR => "codec error"
      | FCI_DEVICE_RUNTIME_STORAGE_ERROR => "storage error"
      | FCI_DEVICE_RUNTIME_RPC_ERROR => "rpc error"
      | FCI_DEVICE_RUNTIME_CORE_ERROR => "core error"
      | FCI_DEVICE_RUNTIME_APPLICATION_ERROR => "application error"
      | FCI_DEVICE_RUNTIME_INVALID_ARGUMENT => "invalid argument"
      end
  end%string.

(** [fci_device_runtime_result_retained_detail] and [_rpc_detail]. *)
Definition fci_device_runtime_result_retained_detail (r : option runtime_result)
    : option (wl_codec_status * wl_result * wl_result) :=
  match r_detail <$> r with Some (DETAIL_RETAINED c s a) => Some (c, s, a) | _ => None end.
Definition fci_device_runtime_result_rpc_detail (r : option runtime_result) : option rpc_detail :=
  match r_detail <$> r with Some (DETAIL_RPC d) => Some d | _ => None end.

Definition detail0 : rpc_detail :=
  {| d_codec_status := WL_CODEC_OK; d_rpc_result := WL_RPC_OK; d_core_result := WL_OK;
     d_application_result := 0; d_operation_id := 0; d_handle := 0; d_payload_length := 0;
     d_server := SERVER_NONE |}.

Definition with_codec (c : wl_codec_status) (d : rpc_detail) : rpc_detail :=
  {| d_codec_status := c; d_rpc_result := d_rpc_result d; d_core_result := d_core_result d;
     d_application_result := d_application_result d; d_operation_id := d_operation_id d;
     d_handle := d_handle d; d_payload_length := d_payload_length d; d_server := d_server d |}.
Definition with_rpc (r : wl_rpc_err) (d : rpc_detail) : rpc_detail :=
  {| d_codec_status := d_codec_status d; d_rpc_result := r; d_core_result := d_core_result d;
     d_application_result := d_application_result d; d_operation_id := d_operation_id d;
     d_handle := d_handle d; d_payload_length := d_payload_length d; d_server := d_server d |}.
Definition with_core (r : wl_result) (d : rpc_detail) : rpc_detail :=
  {| d_codec_status := d_codec_status d; d_rpc_result := d_rpc_result d; d_core_result := r;
     d_application_result := d_application_result d; d_operation_id := d_operation_id d;
     d_handle := d_handle d; d_payload_length := d_payload_length d; d_server := d_server d |}.
Definition with_application (a : Z) (d : rpc_detail) : rpc_detail :=
  {| d_codec_status := d_codec_status d; d_rpc_result := d_rpc_result d; d_core_result := d_core_result d;
     d_application_result := a; d_operation_id := d_operation_id d;
     d_handle := d_handle d; d_payload_length := d_payload_length d; d_server := d_server d |}.
Definition with_operation (id : Z) (d : rpc_detail) : rpc_detail :=
  {| d_codec_status := d_codec_status d; d_rpc_result := d_rpc_result d; d_core_result := d_core_result d;
     d_application_result := d_application_result d; d_operation_id := id;
     d_handle := d_handle d; d_payload_length := d_payload_length d; d_server := d_server d |}.
Definition with_handle (h : Z) (d : rpc_detail) : rpc_detail :=
  {| d_codec_status := d_codec_status d; d_rpc_result := d_rpc_result d; d_core_result := d_core_result d;
     d_application_result := d_application_result d; d_operation_id := d_operation_id d;
     d_handle := h; d_payload_length := d_payload_length d; d_server := d_server d |}.
Definition with_length (n : Z) (d : rpc_detail) : rpc_detail :=
  {| d_codec_status := d_codec_status d; d_rpc_result := d_rpc_result d; d_core_result := d_core_result d;
     d_application_result := d_application_result d; d_operation_id := d_operation_id d;
     d_handle := d_handle d; d_payload_length := n; d_server := d_server d |}.
Definition with_server (s : server_detail) (d : rpc_detail) : rpc_detail :=
  {| d_codec_status := d_codec_status d; d_rpc_result := d_rpc_result d; d_core_result := d_core_result d;
     d_application_result := d_application_result d; d_operation_id := d_operation_id d;
     d_handle := d_handle d; d_payload_length := d_payload_length d; d_server := s |}.

(** A result of a call, outside the dispatch of an event. *)
Definition rpc_outcome (message_id : Z) (domain : fci_device_runtime_domain) (d : rpc_detail)
    : runtime_result :=
  {| r_domain := domain; r_event_type := WL_EVT_NONE; r_message_id := message_id;
     r_detail := DETAIL_RPC d; r_event_consumed := false |}.

(** The detail of a result of a call. *)
Definition result_rpc (r : runtime_result) : rpc_detail :=
  match r_detail r with DETAIL_RPC d => d | _ => detail0 end.

Definition rpc_domain (r : wl_rpc_err) : fci_device_runtime_domain :=
  if decide (r = WL_RPC_OK) then FCI_DEVICE_RUNTIME_OK else FCI_DEVICE_RUNTIME_RPC_ERROR.

(** ** The runtime

    [fci_device_runtime_t]: a pointer that may be null is a flag, or absent;
    [rn_self] is the address of the runtime, which a token holds.  The
    scratch messages of the responses share a union in C; a decoder starts from
    nothing ([wlc_decode]), so each is separate here. *)
Record fci_device_runtime_t := {
  rn_self : Z;
  rn_incarnation : Z;
  rn_latest : latest -> bool;
  rn_client : bool;
  rn_server : bool;
  rn_async : bool;
  rn_encode_scratch : bool;
  rn_peer_observation : option wl_rpc_peer_observation_t;
  rn_retiring_tx : Z;
  rn_bulk_handler : bool;
  rn_bulk_scratch : option wstruct;
  rn_response_scratch : Z -> option wstruct
}.

Definition set_retiring (h : Z) (rt : fci_device_runtime_t) : fci_device_runtime_t :=
  {| rn_self := rn_self rt; rn_incarnation := rn_incarnation rt; rn_latest := rn_latest rt;
     rn_client := rn_client rt; rn_server := rn_server rt; rn_async := rn_async rt;
     rn_encode_scratch := rn_encode_scratch rt; rn_peer_observation := rn_peer_observation rt;
     rn_retiring_tx := h; rn_bulk_handler := rn_bulk_handler rt; rn_bulk_scratch := rn_bulk_scratch rt;
     rn_response_scratch := rn_response_scratch rt |}.
Definition set_observation (o : option wl_rpc_peer_observation_t) (rt : fci_device_runtime_t)
    : fci_device_runtime_t :=
  {| rn_self := rn_self rt; rn_incarnation := rn_incarnation rt; rn_latest := rn_latest rt;
     rn_client := rn_client rt; rn_server := rn_server rt; rn_async := rn_async rt;
     rn_encode_scratch := rn_encode_scratch rt; rn_peer_observation := o;
     rn_retiring_tx := rn_retiring_tx rt; rn_bulk_handler := rn_bulk_handler rt;
     rn_bulk_scratch := rn_bulk_scratch rt; rn_response_scratch := rn_response_scratch rt |}.

(** ** A call of version 2 at the client *)

(** [start_failed] in [fci_device_*_client_start]. *)
Definition start_failed (c : rpc) (operation_id : Z) (domain : fci_device_runtime_domain)
    (d : rpc_detail) : rtp runtime_result :=
  failed ← call (Wl_rpc_client_link_failed operation_id (d_core_result d));
  released ← (if decide (failed = WL_RPC_OK) then call (Wl_rpc_client_release operation_id)
              else mret failed);
  mret (rpc_outcome (rpc_request_id c) domain
    (with_rpc released
      (if decide (released = WL_RPC_OK) then with_operation 0 d else d))).

(** [fci_device_*_client_start]. *)
Definition managed_start (c : rpc) (rt : fci_device_runtime_t) (request : wstruct) (timeout now : Z)
    : rtp runtime_result :=
  let outcome := rpc_outcome (rpc_request_id c) in
  if negb (rn_client rt) then mret (outcome FCI_DEVICE_RUNTIME_INVALID_ARGUMENT detail0)
  else
    '(begun, operation_id) ←
      call (Wl_rpc_client_begin (rpc_request_id c) (rpc_response_id c) timeout now);
    if decide (begun = WL_RPC_OK) then
      '(claimed, capacity) ← call (Wl_tx_payload_claim (rpc_request_id c) true);
      let d := with_core claimed (with_operation operation_id detail0) in
      if decide (claimed = WL_OK) then
        if capacity <? 20 then
          call Wl_tx_payload_abort ;;
          start_failed c operation_id FCI_DEVICE_RUNTIME_CORE_ERROR (with_core WL_ERR_BUF_TOO_SMALL d)
        else
          session ← call Wl_link_session_id;
          let header := fci_device_rpc_header_write 1
            {| h_operation_id := operation_id; h_status := 0; h_session := session |} in
          match wlc_encode (rpc_request c) request (capacity - 20) with
          | (Err codec, _) =>
              call Wl_tx_payload_abort ;;
              start_failed c operation_id FCI_DEVICE_RUNTIME_CODEC_ERROR
                (with_core WL_ERR_CORRUPT_PAYLOAD (with_codec codec d))
          | (Ok n, payload) =>
              '(committed, handle) ← call (Wl_tx_payload_commit (header ++ payload) now);
              let d := with_core committed (with_length (n + 20) d) in
              if decide (committed = WL_OK) then
                bound ← call (Wl_rpc_client_bind_tx operation_id handle);
                mret (outcome (rpc_domain bound) (with_rpc bound (with_handle handle d)))
              else start_failed c operation_id FCI_DEVICE_RUNTIME_CORE_ERROR (with_handle handle d)
          end
      else start_failed c operation_id FCI_DEVICE_RUNTIME_CORE_ERROR d
    else mret (outcome FCI_DEVICE_RUNTIME_RPC_ERROR (with_rpc begun detail0)).

(** Whether a call is one of this RPC. *)
Definition is_call_of (c : rpc) (client : wl_rpc_client_result_t) : bool :=
  (rc_request_message_id client =? rpc_request_id c) &&
  (rc_response_message_id client =? rpc_response_id c).

(** [fci_device_*_client_inspect]. *)
Definition managed_inspect (c : rpc) (rt : fci_device_runtime_t) (operation_id : Z)
    : rtp (res wl_rpc_err wl_rpc_client_result_t) :=
  if negb (rn_client rt) then mret (Err WL_RPC_ERR_INVALID_ARG)
  else
    got ← call (Wl_rpc_client_get operation_id);
    mret (match got with
          | Err e => Err e
          | Ok client => if is_call_of c client then Ok client else Err WL_RPC_ERR_RESPONSE_MISMATCH
          end).

(** The retained bytes of a response; none when it is null. *)
Definition response_bytes (client : wl_rpc_client_result_t) : bytes :=
  match rc_response_data client with Some l => l | None => [] end.

(** [fci_device_*_client_decode]: the result and the response, which [old]
    holds before. *)
Definition managed_decode (c : rpc) (client : wl_rpc_client_result_t) (old : wstruct)
    : runtime_result * wstruct :=
  let d := with_operation (rc_operation_id client)
    (with_application (rc_application_status client)
      (with_core (rc_link_result client)
        (with_length (Z.of_nat (length (response_bytes client))) detail0))) in
  let failed r := (rpc_outcome (rpc_response_id c) FCI_DEVICE_RUNTIME_RPC_ERROR (with_rpc r d), old) in
  if negb (is_call_of c client) then failed WL_RPC_ERR_RESPONSE_MISMATCH
  else if negb (bool_decide (rc_state client = WL_RPC_CLIENT_COMPLETED)) then
    failed WL_RPC_ERR_INVALID_STATE
  else
    match fci_device_rpc_header_read 2 (response_bytes client) with
    | Err _ => failed WL_RPC_ERR_RESPONSE_MISMATCH
    | Ok h =>
        if negb (h_operation_id h =? rc_operation_id client) || negb (h_status h =? 0)
        then failed WL_RPC_ERR_RESPONSE_MISMATCH
        else
          let '(codec, response) := wlc_decode (rpc_response c) (drop 20 (response_bytes client)) old in
          (rpc_outcome (rpc_response_id c)
             (if decide (codec = WL_CODEC_OK) then FCI_DEVICE_RUNTIME_OK
              else FCI_DEVICE_RUNTIME_CODEC_ERROR) (with_codec codec d), response)
    end.

(** [fci_device_*_client_release]. *)
Definition managed_release (c : rpc) (rt : fci_device_runtime_t) (operation_id : Z) : rtp wl_rpc_err :=
  inspected ← managed_inspect c rt operation_id;
  match inspected with
  | Err e => mret e
  | Ok _ => call (Wl_rpc_client_release operation_id)
  end.

(** ** A call of version 2 at the server *)

(** [fci_device_*_encode_response]. *)
Definition managed_encode_response (c : rpc) (owned : bool) (response : wstruct) (capacity : Z)
    : codec Z * bytes :=
  if owned then value_encode (rpc_response c) response capacity
  else wlc_encode (rpc_response c) response capacity.

(** [fci_device_rpc_finish_response], from the result so far. *)
Definition fci_device_rpc_finish_response (request : wl_rpc_server_request_t) (application_status now : Z)
    (encode : Z -> codec Z * bytes) (message_id : Z) (d : rpc_detail) : rtp runtime_result :=
  let id := sr_identity request in
  let outcome := rpc_outcome message_id in
  '(prepared, capacity) ← call (Wl_rpc_server_response_prepare request);
  let d := with_rpc prepared (with_operation (id_operation_id id) d) in
  if negb (bool_decide (prepared = WL_RPC_OK)) then mret (outcome FCI_DEVICE_RUNTIME_RPC_ERROR d)
  else if capacity <? 20 then
    mret (outcome FCI_DEVICE_RUNTIME_RPC_ERROR (with_rpc WL_RPC_ERR_RESPONSE_TOO_LARGE d))
  else
    let header := fci_device_rpc_header_write 2
      {| h_operation_id := id_operation_id id; h_status := application_status;
         h_session := id_peer_session id |} in
    match (if application_status =? 0 then encode (capacity - 20) else (Ok 0, [])) with
    | (Err codec, _) => mret (outcome FCI_DEVICE_RUNTIME_CODEC_ERROR (with_codec codec d))
    | (Ok _, payload) =>
        '(committed, cached) ←
          call (Wl_rpc_server_response_commit request application_status (header ++ payload) now);
        mret (if decide (committed = WL_RPC_OK) then
                outcome FCI_DEVICE_RUNTIME_OK
                  (with_server (SERVER_RESPONSE cached)
                    (with_length (Z.of_nat (length (sp_data cached))) (with_rpc committed d)))
              else outcome FCI_DEVICE_RUNTIME_RPC_ERROR (with_rpc committed d))
    end.

(** [fci_device_*_request_token_t]. *)
Record request_token := {
  tk_owner : Z;
  tk_incarnation : Z;
  tk_request : wl_rpc_server_request_t
}.

Definition token_of_runtime (rt : fci_device_runtime_t) (t : request_token) : bool :=
  (tk_owner t =? rn_self rt) && (tk_incarnation t =? rn_incarnation rt).
Definition request_of (c : rpc) (request : wl_rpc_server_request_t) : bool :=
  (id_request_message_id (sr_identity request) =? rpc_request_id c) &&
  (id_response_message_id (sr_identity request) =? rpc_response_id c).

(** [fci_device_*_server_finish]; [response] is null where it is absent. *)
Definition managed_finish (c : rpc) (rt : fci_device_runtime_t) (t : request_token)
    (application_status : Z) (response : option wstruct) (now : Z) (owned : bool) : rtp runtime_result :=
  let d := with_application application_status detail0 in
  let refused := mret (rpc_outcome (rpc_response_id c) FCI_DEVICE_RUNTIME_INVALID_ARGUMENT d) in
  if negb (rn_server rt) || negb (token_of_runtime rt t) ||
     ((application_status =? 0) && negb (bool_decide (is_Some response)))
  then refused
  else if negb (request_of c (tk_request t)) then refused
  else fci_device_rpc_finish_response (tk_request t) application_status now
    (managed_encode_response c owned (default [] response)) (rpc_response_id c) d.

(** [fci_device_*_server_complete], [_server_reject], [_server_complete_value]. *)
Definition managed_complete (c : rpc) (rt : fci_device_runtime_t) (t : request_token)
    (response : wstruct) (now : Z) : rtp runtime_result :=
  managed_finish c rt t 0 (Some response) now false.
Definition managed_reject (c : rpc) (rt : fci_device_runtime_t) (t : request_token)
    (application_status now : Z) : rtp runtime_result :=
  managed_finish c rt t application_status None now false.
Definition managed_complete_value (c : rpc) (rt : fci_device_runtime_t) (t : request_token)
    (response : wstruct) (now : Z) : rtp runtime_result :=
  managed_finish c rt t 0 (Some response) now true.

(** [fci_device_*_request_inspect]. *)
Definition managed_request_inspect (c : rpc) (rt : fci_device_runtime_t) (t : request_token)
    : res wl_rpc_err wl_rpc_server_request_t :=
  if negb (token_of_runtime rt t) || negb (request_of c (tk_request t)) then Err WL_RPC_ERR_NOT_FOUND
  else Ok (tk_request t).

(** [fci_device_*_encode_submission]. *)
Definition managed_encode_submission (c : rpc) (request : wstruct) (operation_id session capacity : Z)
    : res wl_result bytes :=
  if capacity <? 20 then Err WL_ERR_BUF_TOO_SMALL
  else if session =? 0 then Err WL_ERR_INVALID_ARG
  else
    match value_encode (rpc_request c) request (capacity - 20) with
    | (Err _, _) => Err WL_ERR_CORRUPT_PAYLOAD
    | (Ok _, payload) =>
        Ok (fci_device_rpc_header_write 1
              {| h_operation_id := operation_id; h_status := 0; h_session := session |} ++ payload)
    end.
