(* ===== verification/RuntimeService.v ===== *)
(** * Servicing the runtime

    [generated/wirelink/host/fci_device_runtime.c]: the answers of a server to
    the RPCs of version 1 (lines 3838-3900 and their like), polling, sending the
    responses that are ready, observing peers, and the deadline that is next
    (lines 301-310 and 888-1157). *)

From Stdlib Require Import String.
From S2P Require Import Prelude WlcWire WlcSchema WlcCodec FciMessages DeviceTypes Endpoint EndpointOps FciRpc Prog RuntimeCalls ManagedRpc.

(** ** Answering an RPC of version 1 *)

(** [fci_device_*_server_finish] with its [encoded_response]. *)
Definition legacy_finish (c : rpc) (rt : fci_device_runtime_t) (request : wl_rpc_server_request_t)
    (application_status : Z) (response : wstruct) (now : Z) (reject : bool) : rtp runtime_result :=
  let outcome := rpc_outcome (rpc_response_id c) in
  let id := sr_identity request in
  let d := with_application application_status detail0 in
  if negb (rn_server rt) || (sr_generation request =? 0) || (id_operation_id id =? 0) ||
     negb (request_of c request)
  then mret (outcome FCI_DEVICE_RUNTIME_INVALID_ARGUMENT d)
  else
    let d := with_server (SERVER_REQUEST request) (with_operation (id_operation_id id) d) in
    if negb (rn_encode_scratch rt) then mret (outcome FCI_DEVICE_RUNTIME_MISSING_SCRATCH d)
    else if reject && (application_status =? 0) then
      mret (outcome FCI_DEVICE_RUNTIME_RPC_ERROR (with_rpc WL_RPC_ERR_INVALID_ARG d))
    else
      '(prepared, capacity) ← call (Wl_rpc_server_response_prepare request);
      let d := with_rpc prepared d in
      if negb (bool_decide (prepared = WL_RPC_OK)) then mret (outcome FCI_DEVICE_RUNTIME_RPC_ERROR d)
      else
        let encoded_response := set_scalar (rpc_response c) "status" application_status
          (set_scalar (rpc_response c) "operation_id" (id_operation_id id) response) in
        match wlc_encode (rpc_response c) encoded_response capacity with
        | (Err codec, _) =>
            mret (outcome FCI_DEVICE_RUNTIME_CODEC_ERROR (with_codec codec d))
        | (Ok n, payload) =>
            '(committed, cached) ←
              call (Wl_rpc_server_response_commit request application_status payload now);
            mret (if decide (committed = WL_RPC_OK) then
                    outcome FCI_DEVICE_RUNTIME_OK
                      (with_server (SERVER_RESPONSE cached)
                        (with_application (sp_application_status cached)
                          (with_length (Z.of_nat (length (sp_data cached))) d)))
                  else outcome FCI_DEVICE_RUNTIME_RPC_ERROR (with_rpc committed (with_length n d)))
        end.

(** [fci_device_*_server_complete] and [_server_reject]. *)
Definition legacy_complete (c : rpc) (rt : fci_device_runtime_t) (request : wl_rpc_server_request_t)
    (response : wstruct) (now : Z) : rtp runtime_result :=
  legacy_finish c rt request 0 response now false.
Definition legacy_reject (c : rpc) (rt : fci_device_runtime_t) (request : wl_rpc_server_request_t)
    (application_status : Z) (response : wstruct) (now : Z) : rtp runtime_result :=
  legacy_finish c rt request application_status response now true.

(** ** Peers *)

(** [fci_device_runtime_cancel_peer_tx]. *)
Definition fci_device_runtime_cancel_peer_tx (handle : Z) (rt : fci_device_runtime_t)
    : rtp fci_device_runtime_t :=
  call (Wl_tx_cancel handle) ;;
  taken ← call (Wl_tx_take handle);
  mret (if decide (taken = WL_ERR_INVALID_STATE) then set_retiring handle rt else rt).

Fixpoint cancel_peer_txs (handles : list Z) (rt : fci_device_runtime_t) : rtp fci_device_runtime_t :=
  match handles with
  | [] => mret rt
  | h :: handles => rt ← fci_device_runtime_cancel_peer_tx h rt; cancel_peer_txs handles rt
  end.

(** [fci_device_runtime_peer_observe]: the library calls back for every
    transmission to cancel before it answers. *)
Definition fci_device_runtime_peer_observe (session : Z) (rt : fci_device_runtime_t)
    : rtp (res wl_rpc_err wl_rpc_peer_observation_t * fci_device_runtime_t) :=
  if negb (rn_server rt) || (session =? 0) then mret (Err WL_RPC_ERR_INVALID_ARG, rt)
  else
    '(result, observation, handles) ← call (Wl_rpc_peer_observe session);
    rt ← cancel_peer_txs handles rt;
    if decide (result = WL_RPC_OK) then
      mret (Ok observation, if po_changed observation then set_observation (Some observation) rt else rt)
    else mret (Err result, rt).

(** [fci_device_runtime_peer_observation_take]. *)
Definition fci_device_runtime_peer_observation_take (rt : fci_device_runtime_t)
    : res wl_rpc_err wl_rpc_peer_observation_t * fci_device_runtime_t :=
  match rn_peer_observation rt with
  | None => (Err WL_RPC_ERR_NOT_FOUND, rt)
  | Some o => (Ok o, set_observation None rt)
  end.

(** ** Polling *)

Record runtime_poll_result := {
  pr_client_timed_out : Z;
  pr_server_pending_expired : Z;
  pr_server_cache_expired : Z;
  pr_server_expired_request : option wl_rpc_server_request_t
}.
Definition poll0 : runtime_poll_result :=
  {| pr_client_timed_out := 0; pr_server_pending_expired := 0; pr_server_cache_expired := 0;
     pr_server_expired_request := None |}.

(** [fci_device_runtime_poll]: the result, and what was written before it. *)
Definition fci_device_runtime_poll (rt : fci_device_runtime_t) (now : Z)
    : rtp (wl_rpc_err * runtime_poll_result) :=
  '(polled, timed_out) ←
    (if rn_client rt then call (Wl_rpc_client_poll now) else mret (WL_RPC_OK, 0));
  let out := {| pr_client_timed_out := timed_out; pr_server_pending_expired := 0;
                pr_server_cache_expired := 0; pr_server_expired_request := None |} in
  if negb (bool_decide (polled = WL_RPC_OK)) then mret (polled, out)
  else if negb (rn_server rt) then mret (WL_RPC_OK, out)
  else
    acquired ← call (Wl_rpc_server_expired_acquire now);
    let out := match acquired with
      | Ok request =>
          {| pr_client_timed_out := timed_out; pr_server_pending_expired := 1;
             pr_server_cache_expired := 0; pr_server_expired_request := Some request |}
      | Err _ => out
      end in
    match acquired with
    | Err WL_RPC_ERR_NOT_FOUND | Ok _ =>
        '(polled, cache_expired) ← call (Wl_rpc_server_poll now);
        mret (polled,
          if decide (polled = WL_RPC_OK) then
            {| pr_client_timed_out := pr_client_timed_out out;
               pr_server_pending_expired := pr_server_pending_expired out;
               pr_server_cache_expired := cache_expired;
               pr_server_expired_request := pr_server_expired_request out |}
          else out)
    | Err e => mret (e, out)
    end.

(** ** Service *)

Record runtime_service_result := {
  sv_deadlines : runtime_poll_result;
  sv_response : runtime_result;
  sv_submitted : Z;
  sv_deferred : Z
}.
Definition service0 : runtime_service_result :=
  {| sv_deadlines := poll0; sv_response := fci_device_runtime_result None; sv_submitted := 0;
     sv_deferred := 0 |}.

(** The RPCs, by the ids of their messages, as the switch of lines 961-1105
    lists them; every response is sent reliably. *)
Definition service_rpcs : list (Z * Z) :=
  [ (25097, 25098); (24841, 24842); (25093, 25094); (25347, 25348); (28928, 28929); (25109, 25110);
    (25128, 25129); (25107, 25108); (25089, 25090); (25117, 25118); (25119, 25120); (25123, 25124);
    (25121, 25122); (28932, 28933); (25099, 25100); (25113, 25114); (25125, 25126); (25111, 25112);
    (25130, 25131); (25115, 25116); (24839, 24840); (28930, 28931) ].

Definition service_known (id : wl_rpc_request_identity_t) : bool :=
  match List.find (fun '(_, resp) => resp =? id_response_message_id id) service_rpcs with
  | Some (req, _) => id_request_message_id id =? req
  | None => false
  end.

(** Lines 952-1137 of [fci_device_runtime_service]. *)
Definition service_response (now : Z) (out : runtime_service_result) (response : wl_rpc_server_response_t)
    : rtp (wl_rpc_err * runtime_service_result) :=
  let id := sp_identity response in
  let d := with_server (SERVER_RESPONSE response)
    (with_length (Z.of_nat (length (sp_data response)))
      (with_application (sp_application_status response)
        (with_operation (id_operation_id id) detail0))) in
  let with_response domain d submitted deferred :=
    {| sv_deadlines := sv_deadlines out;
       sv_response := rpc_outcome (id_response_message_id id) domain d;
       sv_submitted := submitted; sv_deferred := deferred |} in
  let untouched d := with_response FCI_DEVICE_RUNTIME_INVALID_ARGUMENT d 0 0 in
  if negb (service_known id) then
    call (Wl_rpc_server_response_defer response) ;;
    mret (WL_RPC_ERR_RESPONSE_MISMATCH, untouched d)
  else
    '(sent, handle) ← call (Wl_send_reliable (id_response_message_id id) (sp_data response) now);
    let d := with_handle handle (with_core sent d) in
    if negb (bool_decide (sent = WL_OK)) then
      deferred ← call (Wl_rpc_server_response_defer response);
      if decide (deferred = WL_RPC_OK)
      then mret (WL_RPC_OK, with_response FCI_DEVICE_RUNTIME_CORE_ERROR d 0 1)
      else mret (deferred, untouched d)
    else
      submitted ← call (Wl_rpc_server_response_submitted response handle);
      if decide (submitted = WL_RPC_OK)
      then mret (WL_RPC_OK, with_response FCI_DEVICE_RUNTIME_OK d 1 0)
      else
        call (Wl_rpc_server_response_defer response) ;;
        mret (submitted, untouched d).

(** [fci_device_runtime_service]. *)
Definition fci_device_runtime_service (rt : fci_device_runtime_t) (now : Z)
    : rtp (wl_rpc_err * runtime_service_result * fci_device_runtime_t) :=
  rt ← (if rn_retiring_tx rt =? 0 then mret rt
        else
          retired ← call (Wl_tx_take (rn_retiring_tx rt));
          mret (match retired with
                | WL_OK | WL_ERR_NOT_FOUND => set_retiring 0 rt
                | _ => rt
                end));
  '(polled, deadlines) ← fci_device_runtime_poll rt now;
  let out := {| sv_deadlines := deadlines; sv_response := fci_device_runtime_result None;
                sv_submitted := 0; sv_deferred := 0 |} in
  if negb (bool_decide (polled = WL_RPC_OK)) then mret (polled, out, rt)
  else if negb (rn_server rt) then mret (WL_RPC_OK, out, rt)
  else
    acquired ← call Wl_rpc_server_response_acquire;
    match acquired with
    | Err WL_RPC_ERR_NOT_FOUND => mret (WL_RPC_OK, out, rt)
    | Err e => mret (e, out, rt)
    | Ok response =>
        '(result, out) ← service_response now out response;
        mret (result, out, rt)
    end.

(** ** The next deadline *)

(** [fci_device_runtime_get_deadline_hint]; [no_deadline] is the constant
    [WL_RPC_NO_DEADLINE_MS] of the link library. *)
Definition fci_device_runtime_get_deadline_hint (no_deadline : Z) (rt : fci_device_runtime_t) (now : Z)
    : rtp (wl_rpc_err * Z) :=
  '(result, client) ←
    (if rn_client rt then call (Wl_rpc_client_get_deadline_hint now)
     else mret (WL_RPC_OK, no_deadline));
  if negb (bool_decide (result = WL_RPC_OK)) then mret (result, no_deadline)
  else
    let nearest := if client <? no_deadline then client else no_deadline in
    '(result, server) ←
      (if rn_server rt then call (Wl_rpc_server_get_deadline_hint now)
       else mret (WL_RPC_OK, nearest));
    if negb (bool_decide (result = WL_RPC_OK)) then mret (result, no_deadline)
    else mret (WL_RPC_OK, if server <? nearest then server else nearest).
