(* ===== verification/RuntimeDispatch.v ===== *)
(** * Dispatching an event

    [fci_device_runtime_dispatch_event] and the views of retained messages
    ([generated/wirelink/host/fci_device_runtime.c], lines 1160-2984).  The
    switch over the message id is a function from the id to what its case does
    ([case_of]); the cases of one sort differ by their message and RPC only. *)

From Stdlib Require Import String.
From S2P Require Import Prelude WlcWire WlcSchema WlcCodec FciMessages DeviceTypes Endpoint EndpointOps FciRpc Prog RuntimeCalls ManagedRpc.

(** ** The RPCs of the protocol *)

Definition mk_rpc (req resp : Z) (dreq dresp : wlc_desc) : rpc :=
  {| rpc_request_id := req; rpc_response_id := resp; rpc_request := dreq; rpc_response := dresp |}.

Definition acquire_control_lease_rpc := mk_rpc 25097 25098 acquire_control_lease_request_desc acquire_control_lease_response_desc.
Definition clear_error_rpc := mk_rpc 24841 24842 clear_error_request_desc clear_error_response_desc.
Definition clear_faults_rpc := mk_rpc 25093 25094 clear_faults_request_desc clear_faults_response_desc.
Definition emergency_stop_rpc := mk_rpc 25347 25348 emergency_stop_request_desc emergency_stop_response_desc.
Definition get_device_info_rpc := mk_rpc 25109 25110 get_device_info_request_desc get_device_info_response_desc.
Definition get_device_settings_rpc := mk_rpc 25128 25129 get_device_settings_request_desc get_device_settings_response_desc.
Definition get_motor_feedback_rpc := mk_rpc 25107 25108 get_motor_feedback_request_desc get_motor_feedback_response_desc.
Definition home_rpc := mk_rpc 25089 25090 home_request_desc home_response_desc.
Definition motor_register_read_rpc := mk_rpc 25117 25118 motor_register_read_request_desc motor_register_read_response_desc.
Definition motor_register_write_rpc := mk_rpc 25119 25120 motor_register_write_request_desc motor_register_write_response_desc.
Definition motor_set_zero_rpc := mk_rpc 25123 25124 motor_set_zero_request_desc motor_set_zero_response_desc.
Definition motor_store_parameters_rpc := mk_rpc 25121 25122 motor_store_parameters_request_desc motor_store_parameters_response_desc.
Definition release_control_lease_rpc := mk_rpc 25099 25100 release_control_lease_request_desc release_control_lease_response_desc.
Definition set_arm_control_mode_rpc := mk_rpc 25113 25114 set_arm_control_mode_request_desc set_arm_control_mode_response_desc.
Definition set_arm_mode_rpc := mk_rpc 25125 25126 set_arm_mode_request_desc set_arm_mode_response_desc.
Definition set_device_info_rpc := mk_rpc 25111 25112 set_device_info_request_desc set_device_info_response_desc.
Definition set_device_settings_rpc := mk_rpc 25130 25131 set_device_settings_request_desc set_device_settings_response_desc.
Definition set_gripper_control_mode_rpc := mk_rpc 25115 25116 set_gripper_control_mode_request_desc set_gripper_control_mode_response_desc.
Definition set_zero_rpc := mk_rpc 24839 24840 set_zero_request_desc set_zero_response_desc.

(** The RPCs of version 2, and those of version 1. *)
Definition managed_rpcs : list rpc :=
  [ acquire_control_lease_rpc; clear_error_rpc; clear_faults_rpc; emergency_stop_rpc;
    get_device_info_rpc; get_device_settings_rpc; get_motor_feedback_rpc; home_rpc;
    motor_register_read_rpc; motor_register_write_rpc; motor_set_zero_rpc; motor_store_parameters_rpc;
    release_control_lease_rpc; set_arm_control_mode_rpc; set_arm_mode_rpc; set_device_info_rpc;
    set_device_settings_rpc; set_gripper_control_mode_rpc; set_zero_rpc ].
Definition legacy_rpcs : list rpc := [get_boot_status_rpc; reboot_rpc; start_upgrade_rpc].

(** ** Scratch *)

Definition set_response_scratch (id : Z) (m : wstruct) (rt : fci_device_runtime_t) : fci_device_runtime_t :=
  {| rn_self := rn_self rt; rn_incarnation := rn_incarnation rt; rn_latest := rn_latest rt;
     rn_client := rn_client rt; rn_server := rn_server rt; rn_async := rn_async rt;
     rn_encode_scratch := rn_encode_scratch rt; rn_peer_observation := rn_peer_observation rt;
     rn_retiring_tx := rn_retiring_tx rt; rn_bulk_handler := rn_bulk_handler rt;
     rn_bulk_scratch := rn_bulk_scratch rt;
     rn_response_scratch := fun i => if i =? id then Some m else rn_response_scratch rt i |}.
Definition set_bulk_scratch (m : wstruct) (rt : fci_device_runtime_t) : fci_device_runtime_t :=
  {| rn_self := rn_self rt; rn_incarnation := rn_incarnation rt; rn_latest := rn_latest rt;
     rn_client := rn_client rt; rn_server := rn_server rt; rn_async := rn_async rt;
     rn_encode_scratch := rn_encode_scratch rt; rn_peer_observation := rn_peer_observation rt;
     rn_retiring_tx := rn_retiring_tx rt; rn_bulk_handler := rn_bulk_handler rt;
     rn_bulk_scratch := Some m; rn_response_scratch := rn_response_scratch rt |}.

(** ** The cases of the switch

    What a case makes of the result: its domain and detail.  *)

Definition outcome : Type := fci_device_runtime_domain * runtime_detail.

Section cases.
Variable sizeof alignof : latest -> Z.

(** [case ARM_STATUS_MESSAGE_ID] and its like, lines 1211-1342. *)
Definition retained_case (k : latest) (e : wl_event_t) (rt : fci_device_runtime_t) : rtp outcome :=
  let retained c s a := DETAIL_RETAINED c s a in
  let failed storage :=
    aborted ← call (Wl_latest_write_abort k);
    mret (FCI_DEVICE_RUNTIME_STORAGE_ERROR, retained WL_CODEC_OK storage aborted) in
  if negb (bool_decide (ev_type e = WL_EVT_UNRELIABLE_RX)) then
    mret (FCI_DEVICE_RUNTIME_DELIVERY_MISMATCH, retained WL_CODEC_OK WL_OK WL_OK)
  else if negb (rn_latest rt k) then
    mret (FCI_DEVICE_RUNTIME_MISSING_ROUTE, retained WL_CODEC_OK WL_OK WL_OK)
  else
    '(claimed, span) ← call (Wl_latest_write_claim k);
    if negb (bool_decide (claimed = WL_OK)) then
      mret (FCI_DEVICE_RUNTIME_STORAGE_ERROR, retained WL_CODEC_OK claimed WL_OK)
    else if cs_size span <? sizeof k then failed WL_ERR_BUF_TOO_SMALL
    else if negb (cs_address span mod alignof k =? 0) then failed WL_ERR_INVALID_ARG
    else
      let '(codec, value) := wlc_decode (latest_desc k) (ev_payload e) [] in
      if negb (bool_decide (codec = WL_CODEC_OK)) then
        aborted ← call (Wl_latest_write_abort k);
        mret (FCI_DEVICE_RUNTIME_CODEC_ERROR, retained codec WL_OK aborted)
      else
        published ← call (Wl_latest_write_publish k value);
        if decide (published = WL_OK)
        then mret (FCI_DEVICE_RUNTIME_OK, retained WL_CODEC_OK WL_OK WL_OK)
        else failed published.

(** [case 28708U], lines 1343-1354. *)
Definition bulk_status_case (e : wl_event_t) (rt : fci_device_runtime_t)
    : rtp (outcome * fci_device_runtime_t) :=
  let direct c a := DETAIL_DIRECT c a in
  if negb (bool_decide (ev_type e = WL_EVT_UNRELIABLE_RX)) then
    mret ((FCI_DEVICE_RUNTIME_DELIVERY_MISMATCH, direct WL_CODEC_OK 0), rt)
  else if negb (rn_bulk_handler rt) then
    mret ((FCI_DEVICE_RUNTIME_MISSING_ROUTE, direct WL_CODEC_OK 0), rt)
  else
    match rn_bulk_scratch rt with
    | None => mret ((FCI_DEVICE_RUNTIME_MISSING_SCRATCH, direct WL_CODEC_OK 0), rt)
    | Some scratch =>
        let '(codec, message) :=
          wlc_decode bulk_status_desc (ev_payload e) (wlc_clear bulk_status_desc scratch) in
        let rt := set_bulk_scratch message rt in
        if negb (bool_decide (codec = WL_CODEC_OK)) then
          mret ((FCI_DEVICE_RUNTIME_CODEC_ERROR, direct codec 0), rt)
        else
          application ← call (Bulk_status_handler message);
          mret ((if application =? 0 then FCI_DEVICE_RUNTIME_OK else FCI_DEVICE_RUNTIME_APPLICATION_ERROR,
                 direct codec application), rt)
    end.

(** [case 25097U] and its like: a request, of which this build has no server. *)
Definition request_case (e : wl_event_t) : outcome :=
  (if decide (ev_type e = WL_EVT_RELIABLE_RX) then FCI_DEVICE_RUNTIME_MISSING_ROUTE
   else FCI_DEVICE_RUNTIME_DELIVERY_MISMATCH, DETAIL_RPC detail0).

(** What [fci_device_rpc_header_read] has left in the detail, also when it
    refuses a header after its first four bytes. *)
Definition header_written (data : bytes) (d : rpc_detail) : rpc_detail :=
  if (length data <? 20)%nat || negb (nth 0 data 0 =? 0) || negb (nth 1 data 0 =? 2) ||
     negb (nth 2 data 0 =? 2) || negb (nth 3 data 0 =? 0)
  then d
  else
    let bits := fci_device_rpc_read_u32 (drop 8 data) in
    with_application (if bits <=? 2147483647 then bits else -1 - (4294967295 - bits))
      (with_operation (fci_device_rpc_read_u32 (drop 4 data)) d).

(** [case 25098U] and its like: a response of version 2, lines 1359-1429. *)
Definition response_case (c : rpc) (e : wl_event_t) (rt : fci_device_runtime_t) (now : Z)
    : rtp (outcome * fci_device_runtime_t) :=
  let done domain d := mret ((domain, DETAIL_RPC d), rt) in
  if negb (bool_decide (ev_type e = WL_EVT_RELIABLE_RX)) then
    done FCI_DEVICE_RUNTIME_DELIVERY_MISMATCH detail0
  else if negb (rn_client rt) then done FCI_DEVICE_RUNTIME_MISSING_ROUTE detail0
  else
    let d := header_written (ev_payload e) detail0 in
    match fci_device_rpc_header_read 2 (ev_payload e) with
    | Err _ => done FCI_DEVICE_RUNTIME_RPC_ERROR (with_rpc WL_RPC_ERR_MALFORMED_METADATA d)
    | Ok h =>
        if negb (h_status h =? 0) && negb (length (ev_payload e) =? 20)%nat then
          done FCI_DEVICE_RUNTIME_RPC_ERROR (with_rpc WL_RPC_ERR_MALFORMED_METADATA d)
        else
          session ← call Wl_link_session_id;
          if negb (h_session h =? session) then
            done FCI_DEVICE_RUNTIME_OK (with_rpc WL_RPC_ERR_SESSION_MISMATCH d)
          else
            (if rn_async rt then call (Wl_rpc_client_poll now) ;; mret tt else mret tt) ;;
            got ← call (Wl_rpc_client_get (h_operation_id h));
            match got with
            | Err WL_RPC_ERR_NOT_FOUND =>
                done FCI_DEVICE_RUNTIME_OK (with_rpc WL_RPC_ERR_NOT_FOUND d)
            | Err _ => done FCI_DEVICE_RUNTIME_RPC_ERROR (with_rpc WL_RPC_ERR_RESPONSE_MISMATCH d)
            | Ok client =>
                if negb (is_call_of c client) then
                  done FCI_DEVICE_RUNTIME_RPC_ERROR (with_rpc WL_RPC_ERR_RESPONSE_MISMATCH d)
                else if negb (rpc_pending (rc_state client)) then
                  done FCI_DEVICE_RUNTIME_OK (with_rpc WL_RPC_ERR_INVALID_STATE d)
                else
                  let deliver d rt :=
                    let d := with_length (Z.of_nat (length (ev_payload e))) d in
                    result ← call (Wl_rpc_client_on_response (rpc_response_id c) (h_operation_id h)
                      (h_status h) (ev_payload e));
                    mret ((rpc_domain result, DETAIL_RPC (with_rpc result d)), rt) in
                  if negb (h_status h =? 0) then deliver d rt
                  else
                    match rn_response_scratch rt (rpc_response_id c) with
                    | None => done FCI_DEVICE_RUNTIME_MISSING_SCRATCH d
                    | Some scratch =>
                        let '(codec, response) :=
                          wlc_decode (rpc_response c) (drop 20 (ev_payload e)) scratch in
                        let rt := set_response_scratch (rpc_response_id c) response rt in
                        if decide (codec = WL_CODEC_OK) then deliver d rt
                        else mret ((FCI_DEVICE_RUNTIME_CODEC_ERROR, DETAIL_RPC (with_codec codec d)), rt)
                    end
            end
    end.

(** [case GET_BOOT_STATUS_RESPONSE_MESSAGE_ID] and its like: a response of
    version 1, lines 1659-1689. *)
Definition legacy_response_case (c : rpc) (e : wl_event_t) (rt : fci_device_runtime_t)
    : rtp (outcome * fci_device_runtime_t) :=
  let done domain d := mret ((domain, DETAIL_RPC d), rt) in
  if negb (bool_decide (ev_type e = WL_EVT_RELIABLE_RX)) then
    done FCI_DEVICE_RUNTIME_DELIVERY_MISMATCH detail0
  else if negb (rn_client rt) then done FCI_DEVICE_RUNTIME_MISSING_ROUTE detail0
  else
    match rn_response_scratch rt (rpc_response_id c) with
    | None => done FCI_DEVICE_RUNTIME_MISSING_SCRATCH detail0
    | Some scratch =>
        let '(codec, response) := wlc_decode (rpc_response c) (ev_payload e) scratch in
        let rt := set_response_scratch (rpc_response_id c) response rt in
        if negb (bool_decide (codec = WL_CODEC_OK)) then
          mret ((FCI_DEVICE_RUNTIME_CODEC_ERROR, DETAIL_RPC (with_codec codec detail0)), rt)
        else
          let '(has_id, id) := wire_int (rpc_response c) "operation_id" response in
          let '(has_status, status) := wire_int (rpc_response c) "status" response in
          if negb has_id || (id =? 0) || negb has_status then
            mret ((FCI_DEVICE_RUNTIME_RPC_ERROR,
                   DETAIL_RPC (with_rpc WL_RPC_ERR_RESPONSE_MISMATCH detail0)), rt)
          else
            let d := with_length (Z.of_nat (length (ev_payload e)))
              (with_application status (with_operation id detail0)) in
            result ← call (Wl_rpc_client_on_response (rpc_response_id c) id status (ev_payload e));
            mret ((rpc_domain result, DETAIL_RPC (with_rpc result d)), rt)
    end.

(** ** The switch *)

Inductive case :=
| CRetained (k : latest)
| CBulkStatus
| CRequest
| CResponse (c : rpc)
| CLegacyResponse (c : rpc)
| CUnknown.

Definition case_of (message_id : Z) : case :=
  if message_id =? 24577 then CRetained ArmStatusLatest
  else if message_id =? 24578 then CRetained MotorFeedbackLatest
  else if message_id =? 24580 then CRetained ArmDiagnosticsLatest
  else if message_id =? 28708 then CBulkStatus
  else if existsb (fun c => message_id =? rpc_request_id c) (managed_rpcs ++ legacy_rpcs) then CRequest
  else
    match List.find (fun c => message_id =? rpc_response_id c) managed_rpcs with
    | Some c => CResponse c
    | None =>
        match List.find (fun c => message_id =? rpc_response_id c) legacy_rpcs with
        | Some c => CLegacyResponse c
        | None => CUnknown
        end
    end.

Definition dispatch_case (e : wl_event_t) (rt : fci_device_runtime_t) (now : Z)
    : rtp (outcome * fci_device_runtime_t) :=
  match case_of (ev_message_id e) with
  | CRetained k => o ← retained_case k e rt; mret (o, rt)
  | CBulkStatus => bulk_status_case e rt
  | CRequest => mret (request_case e, rt)
  | CResponse c => response_case c e rt now
  | CLegacyResponse c => legacy_response_case c e rt
  | CUnknown => mret ((FCI_DEVICE_RUNTIME_UNKNOWN_MESSAGE, DETAIL_NONE), rt)
  end.

(** A finished transmission is taken, lines 1166-1204. *)
Definition dispatch_tx (e : wl_event_t) (rt : fci_device_runtime_t) : rtp runtime_result :=
  let result domain d consumed :=
    {| r_domain := domain; r_event_type := ev_type e; r_message_id := ev_message_id e;
       r_detail := DETAIL_RPC d; r_event_consumed := consumed |} in
  let take d :=
    taken ← call (Wl_tx_take (ev_handle e));
    mret (result (if decide (taken = WL_OK) then FCI_DEVICE_RUNTIME_OK else FCI_DEVICE_RUNTIME_CORE_ERROR)
            (with_core taken d) (bool_decide (taken = WL_OK))) in
  let d := with_handle (ev_handle e) detail0 in
  retired ← (if rn_async rt then call (Wl_rpc_async_retire_tx (ev_handle e)) else mret false);
  if (retired : bool) then take d
  else
    server ← (if rn_server rt then call (Wl_rpc_server_on_tx_event e) else mret WL_RPC_ERR_NOT_FOUND);
    let d := if rn_server rt then with_rpc server d else d in
    if decide (server = WL_RPC_OK) then take d
    else if negb (bool_decide (server = WL_RPC_ERR_NOT_FOUND)) then
      mret (result FCI_DEVICE_RUNTIME_RPC_ERROR d false)
    else if negb (rn_client rt) then mret (result FCI_DEVICE_RUNTIME_NON_RX d false)
    else
      client ← call (Wl_rpc_client_on_tx_event e);
      let d := with_rpc client d in
      if decide (client = WL_RPC_OK) then take d
      else if decide (client = WL_RPC_ERR_NOT_FOUND) then mret (result FCI_DEVICE_RUNTIME_NON_RX d false)
      else mret (result FCI_DEVICE_RUNTIME_RPC_ERROR d false).

(** [fci_device_runtime_dispatch_event]. *)
Definition fci_device_runtime_dispatch_event (e : wl_event_t) (rt : fci_device_runtime_t) (now : Z)
    : rtp (runtime_result * fci_device_runtime_t) :=
  let result := fci_device_runtime_result (Some e) in
  if is_tx_end e then r ← dispatch_tx e rt; mret (r, rt)
  else if negb (is_rx e) then
    mret ({| r_domain := FCI_DEVICE_RUNTIME_NON_RX; r_event_type := r_event_type result;
             r_message_id := r_message_id result; r_detail := DETAIL_NONE;
             r_event_consumed := false |}, rt)
  else
    '(domain, detail, rt) ← dispatch_case e rt now;
    call (Wl_event_release e) ;;
    mret ({| r_domain := domain; r_event_type := r_event_type result;
             r_message_id := r_message_id result; r_detail := detail; r_event_consumed := true |}, rt).

(** ** The views of retained messages *)

(** [fci_device_*_latest_view_t]: the address of the typed value and the value. *)
Record typed_view := {
  tv_address : Z;
  tv_value : wstruct;
  tv_generation : Z;
  tv_lease : wl_latest_view_t
}.

(** [fci_device_*_latest_acquire]; the view is [*out_view]. *)
Definition latest_acquire (k : latest) (rt : fci_device_runtime_t) : rtp (res wl_result typed_view) :=
  if negb (rn_latest rt k) then mret (Err WL_ERR_NOT_INITIALIZED)
  else
    '(acquired, lease) ← call (Wl_latest_read_acquire k);
    if negb (bool_decide (acquired = WL_OK)) then mret (Err acquired)
    else
      let unusable :=
        released ← call (Wl_latest_read_release k lease);
        mret (Err (if negb (bool_decide (released = WL_OK)) then released
                   else if lv_size lease <? sizeof k then WL_ERR_BUF_TOO_SMALL
                   else WL_ERR_INVALID_STATE)) in
      match lv_value lease with
      | None => unusable
      | Some (address, value) =>
          if (lv_size lease <? sizeof k) || negb (address mod alignof k =? 0) then unusable
          else mret (Ok {| tv_address := address; tv_value := value;
                           tv_generation := lv_generation lease; tv_lease := lease |})
      end.

(** [fci_device_*_latest_release]; whether the view is cleared. *)
Definition latest_release (k : latest) (rt : fci_device_runtime_t) (view : typed_view)
    : rtp (wl_result * bool) :=
  let lease := tv_lease view in
  if negb (rn_latest rt k) then mret (WL_ERR_NOT_INITIALIZED, false)
  else if negb (tv_address view =? match lv_value lease with Some (a, _) => a | None => 0 end) ||
          negb (tv_generation view =? lv_generation lease)
  then mret (WL_ERR_INVALID_STATE, false)
  else
    released ← call (Wl_latest_read_release k lease);
    mret (released, bool_decide (released = WL_OK)).

(** [fci_device_endpoint_read_*] of [fci_device_runtime.h]: a copy of the
    value, with the lease given back. *)
Definition endpoint_read (k : latest) (initialized : bool) (rt : fci_device_runtime_t) (out : wstruct)
    : rtp (wl_result * wstruct) :=
  if negb initialized then mret (WL_ERR_NOT_INITIALIZED, out)
  else
    acquired ← latest_acquire k rt;
    match acquired with
    | Err e => mret (e, out)
    | Ok view => '(released, _) ← latest_release k rt view; mret (released, tv_value view)
    end.
End cases.
