(* ===== verification/RpcEndpoint.v ===== *)
(** * The generated endpoint

    [generated/wirelink/host/fci_device_runtime.h], lines 2018-5663, the pump of
    [fci_device_runtime.c], lines 7037-7092, and [fci_device_advanced.h]: a pass
    of the owner, what it does with the results and completions of the library,
    and the calls of an application: asynchronous, synchronous, and manual.  The
    generator writes lines 2427-2593 (and, of [fci_device_advanced.h], 8-122)
    once per RPC of version 2; here they take the RPC as an argument.

    The library calls back from inside [wl_endpoint_step], [wl_rpc_async_service]
    and the functions that end calls; its answer lists those callbacks, which
    the model runs before it goes on.  The frame of a synchronous call is on the
    stack of its caller: the frames that are live are a part of the state. *)

From Stdlib Require Import String.
From S2P Require Import Prelude WlcWire WlcSchema WlcCodec WlcValue FciMessages DeviceTypes Endpoint EndpointOps FciRpc Prog RuntimeCalls ManagedRpc RuntimeService RuntimeDispatch.

(** ** State *)

(** [fci_device_*_sync_state_t]; [sf_response] is the caller's [*response]. *)
Record sync_frame := {
  sf_done : bool;
  sf_result : rpc_completion;
  sf_response : wstruct;
  sf_notify : option Z
}.

(** [fci_device_endpoint_t] and its pump. *)
Record fci_device_endpoint_t := {
  en_self : Z;
  en_stepping : bool;
  en_closing : bool;
  en_sync_waiting : bool;
  en_incarnation : Z;
  en_event_budget : Z;
  en_runtime : fci_device_runtime_t;
  en_last_service_result : wl_rpc_err;
  en_last_service : runtime_service_result;
  en_result : runtime_result;
  en_on_result : bool;
  en_completion : rpc_completion;
  en_value : wstruct;
  en_frames : Z -> option sync_frame
}.

Section setters.
Variable e : fci_device_endpoint_t.
Definition en_set (stepping closing waiting : bool) (rt : fci_device_runtime_t) (last : wl_rpc_err)
    (service : runtime_service_result) (result : runtime_result) (completion : rpc_completion)
    (value : wstruct) (frames : Z -> option sync_frame) : fci_device_endpoint_t :=
  {| en_self := en_self e; en_stepping := stepping; en_closing := closing; en_sync_waiting := waiting;
     en_incarnation := en_incarnation e; en_event_budget := en_event_budget e; en_runtime := rt;
     en_last_service_result := last; en_last_service := service; en_result := result;
     en_on_result := en_on_result e; en_completion := completion; en_value := value;
     en_frames := frames |}.
Definition set_stepping (b : bool) := en_set b (en_closing e) (en_sync_waiting e) (en_runtime e)
  (en_last_service_result e) (en_last_service e) (en_result e) (en_completion e) (en_value e) (en_frames e).
Definition set_closing (b : bool) := en_set (en_stepping e) b (en_sync_waiting e) (en_runtime e)
  (en_last_service_result e) (en_last_service e) (en_result e) (en_completion e) (en_value e) (en_frames e).
Definition set_sync_waiting (b : bool) := en_set (en_stepping e) (en_closing e) b (en_runtime e)
  (en_last_service_result e) (en_last_service e) (en_result e) (en_completion e) (en_value e) (en_frames e).
Definition set_runtime (rt : fci_device_runtime_t) := en_set (en_stepping e) (en_closing e)
  (en_sync_waiting e) rt (en_last_service_result e) (en_last_service e) (en_result e) (en_completion e)
  (en_value e) (en_frames e).
Definition set_last (last : wl_rpc_err) := en_set (en_stepping e) (en_closing e) (en_sync_waiting e)
  (en_runtime e) last (en_last_service e) (en_result e) (en_completion e) (en_value e) (en_frames e).
Definition set_service (last : wl_rpc_err) (service : runtime_service_result) := en_set (en_stepping e)
  (en_closing e) (en_sync_waiting e) (en_runtime e) last service (en_result e) (en_completion e)
  (en_value e) (en_frames e).
Definition set_result (r : runtime_result) := en_set (en_stepping e) (en_closing e) (en_sync_waiting e)
  (en_runtime e) (en_last_service_result e) (en_last_service e) r (en_completion e) (en_value e)
  (en_frames e).
Definition set_completion (c : rpc_completion) (v : wstruct) := en_set (en_stepping e) (en_closing e)
  (en_sync_waiting e) (en_runtime e) (en_last_service_result e) (en_last_service e) (en_result e) c v
  (en_frames e).
Definition set_frame (i : Z) (f : option sync_frame) := en_set (en_stepping e) (en_closing e)
  (en_sync_waiting e) (en_runtime e) (en_last_service_result e) (en_last_service e) (en_result e)
  (en_completion e) (en_value e) (fun j => if j =? i then f else en_frames e j).
End setters.

(** The result that [memset] leaves. *)
Definition result0 : runtime_result :=
  {| r_domain := FCI_DEVICE_RUNTIME_OK; r_event_type := WL_EVT_NONE; r_message_id := 0;
     r_detail := DETAIL_NONE; r_event_consumed := false |}.

Definition with_domain (domain : fci_device_runtime_domain) (r : runtime_result) : runtime_result :=
  {| r_domain := domain; r_event_type := r_event_type r; r_message_id := r_message_id r;
     r_detail := r_detail r; r_event_consumed := r_event_consumed r |}.

(** ** Recording a result *)

(** A cached reply keeps its reservation and is tried again. *)
Definition reply_pressure (r : runtime_result) : bool :=
  match r_domain r, r_detail r with
  | FCI_DEVICE_RUNTIME_CORE_ERROR, DETAIL_RPC d =>
      match d_core_result d with
      | WL_ERR_BUSY | WL_ERR_WOULD_BLOCK | WL_ERR_QUEUE_FULL | WL_ERR_NO_SPACE => true
      | _ => false
      end
  | _, _ => false
  end.

Definition keep_result (r : runtime_result) (e : fci_device_endpoint_t) : rtp fci_device_endpoint_t :=
  if reply_pressure r then mret e
  else
    let e := if result_ok (en_result e) then set_result e r else e in
    if en_on_result e then call (On_result r) ;; mret e else mret e.

(** [fci_device_endpoint_record]. *)
Definition fci_device_endpoint_record (r : runtime_result) (e : fci_device_endpoint_t)
    : rtp fci_device_endpoint_t :=
  if decide (r_domain r = FCI_DEVICE_RUNTIME_NON_RX) then
    match r_event_type r with
    | WL_EVT_TX_TIMEOUT | WL_EVT_TX_FAILED =>
        keep_result (with_domain FCI_DEVICE_RUNTIME_CORE_ERROR r) e
    | _ => mret e
    end
  else keep_result r e.

(** ** Completions *)

Section completions.

(** What the library makes of a call that has ended. *)
Variable wl_rpc_async_completion : wl_rpc_client_result_t -> rpc_completion.

(** [fci_device_endpoint_*_prepare]. *)
Definition endpoint_prepare (c : rpc) (client : wl_rpc_client_result_t) (e : fci_device_endpoint_t)
    : fci_device_endpoint_t :=
  let result := wl_rpc_async_completion client in
  let failed codec runtime :=
    {| cp_status := WL_RPC_FAILED; cp_rejection := cp_rejection result;
       cp_local_error := cp_local_error result; cp_codec_error := codec;
       cp_runtime_error := runtime |} in
  if decide (cp_status result = WL_RPC_SUCCESS) then
    if (length (response_bytes client) <? 20)%nat then
      set_completion e (failed (cp_codec_error result) WL_RPC_ERR_MALFORMED_METADATA) (en_value e)
    else
      match value_decode (rpc_response c) (drop 20 (response_bytes client)) with
      | Err s => set_completion e (failed s (cp_runtime_error result)) (en_value e)
      | Ok v =>
          set_completion e
            {| cp_status := WL_RPC_SUCCESS; cp_rejection := cp_rejection result;
               cp_local_error := cp_local_error result; cp_codec_error := WL_CODEC_OK;
               cp_runtime_error := cp_runtime_error result |} v
      end
  else set_completion e result (en_value e).

(** [fci_device_endpoint_*_sync_done]. *)
Definition sync_done (frame : Z) (result : rpc_completion) (response : option wstruct)
    (e : fci_device_endpoint_t) : rtp fci_device_endpoint_t :=
  match en_frames e frame with
  | None => mret e
  | Some f =>
      let e := set_frame e frame (Some
        {| sf_done := true; sf_result := result;
           sf_response := match response with Some v => v | None => sf_response f end;
           sf_notify := sf_notify f |}) in
      match sf_notify f with
      | Some context => call (Sync_notify context result) ;; mret e
      | None => mret e
      end
  end.

(** [fci_device_endpoint_*_notify]. *)
Definition endpoint_notify (callback : rpc_callback) (e : fci_device_endpoint_t)
    : rtp fci_device_endpoint_t :=
  let response := if decide (cp_status (en_completion e) = WL_RPC_SUCCESS) then Some (en_value e)
                  else None in
  match callback with
  | CbApplication f user_data =>
      call (Completion_callback f user_data (en_completion e) response) ;; mret e
  | CbSync frame => sync_done frame (en_completion e) response e
  end.

(** The callbacks of the calls that the library ends. *)
Fixpoint run_completions (l : list (rpc_observer * wl_rpc_client_result_t)) (e : fci_device_endpoint_t)
    : rtp fci_device_endpoint_t :=
  match l with
  | [] => mret e
  | (observer, client) :: l =>
      e ← endpoint_notify (ob_callback observer) (endpoint_prepare (ob_rpc observer) client e);
      run_completions l e
  end.

(** ** The pump *)

Variable sizeof alignof : latest -> Z.

(** [fci_device_runtime_pump_event]: whether the event is consumed. *)
Definition pump_event (event : wl_event_t) (now : Z) (e : fci_device_endpoint_t)
    : rtp (bool * fci_device_endpoint_t) :=
  '(r, rt) ← fci_device_runtime_dispatch_event sizeof alignof event (en_runtime e) now;
  e ← fci_device_endpoint_record r (set_runtime e rt);
  mret (r_event_consumed r, e).

(** [fci_device_runtime_pump_progress]: whether there was progress. *)
Definition pump_progress (now : Z) (e : fci_device_endpoint_t) : rtp (bool * fci_device_endpoint_t) :=
  '(last, service, rt) ← fci_device_runtime_service (en_runtime e) now;
  let e := set_service (set_runtime e rt) last service in
  e ← (if decide (last = WL_RPC_OK) then
         if negb (r_message_id (sv_response service) =? 0)
         then fci_device_endpoint_record (sv_response service) e else mret e
       else mret e);
  let progress := bool_decide (last = WL_RPC_OK) && negb (sv_submitted service =? 0) in
  if rn_async (en_runtime e) then
    '(serviced, notified, completions) ← call (Wl_rpc_async_service now);
    e ← run_completions completions e;
    let e := if decide (serviced = WL_OK) then e else set_last e WL_RPC_ERR_INVALID_STATE in
    mret (progress || negb (notified =? 0), e)
  else mret (progress, e).

(** [fci_device_runtime_pump_deadline]; [no_poll_deadline] and [no_deadline] are
    constants of the library. *)
Definition pump_deadline (no_poll_deadline no_deadline : Z) (now : Z) (e : fci_device_endpoint_t) : rtp Z :=
  '(result, deadline) ← fci_device_runtime_get_deadline_hint no_deadline (en_runtime e) now;
  if negb (bool_decide (result = WL_RPC_OK)) then mret no_poll_deadline
  else if rn_async (en_runtime e) then
    notification ← call Wl_rpc_async_notification_deadline;
    mret (if notification =? 0 then 0 else deadline)
  else mret deadline.

Fixpoint run_hooks (hooks : list hook) (e : fci_device_endpoint_t) : rtp fci_device_endpoint_t :=
  match hooks with
  | [] => mret e
  | HEvent event now :: hooks => '(_, e) ← pump_event event now e; run_hooks hooks e
  | HProgress now :: hooks => '(_, e) ← pump_progress now e; run_hooks hooks e
  end.

(** ** A pass of the owner *)

(** [fci_device_endpoint_step]. *)
Definition fci_device_endpoint_step (e : fci_device_endpoint_t) : rtp (wl_result * fci_device_endpoint_t) :=
  if en_stepping e || en_closing e then mret (WL_ERR_REENTRANT, e)
  else
    let e := set_result (set_stepping e true) result0 in
    '(stepped, hooks) ← call (Wl_endpoint_step (en_event_budget e));
    e ← run_hooks hooks e;
    let e := set_stepping e false in
    if negb (bool_decide (stepped = WL_OK)) then mret (stepped, e)
    else if negb (bool_decide (en_last_service_result e = WL_RPC_OK)) then
      mret (WL_ERR_INVALID_STATE,
        if result_ok (en_result e) then
          set_result e
            {| r_domain := FCI_DEVICE_RUNTIME_RPC_ERROR; r_event_type := r_event_type (en_result e);
               r_message_id := r_message_id (en_result e);
               r_detail := DETAIL_RPC (with_rpc (en_last_service_result e) (result_rpc (en_result e)));
               r_event_consumed := r_event_consumed (en_result e) |}
        else e)
    else mret (if result_ok (en_result e) then WL_OK else WL_ERR_INVALID_STATE, e).

(** [fci_device_endpoint_close]. *)
Definition fci_device_endpoint_close (e : fci_device_endpoint_t) : rtp (wl_result * fci_device_endpoint_t) :=
  if en_stepping e || en_closing e then mret (WL_ERR_REENTRANT, e)
  else
    let e := set_closing e true in
    call Wl_endpoint_close ;;
    '(closed, completions) ← call Wl_rpc_async_close;
    e ← run_completions completions e;
    mret (closed, set_closing e false).

(** [fci_device_endpoint_cancel]. *)
Definition fci_device_endpoint_cancel (async_call : Z) (e : fci_device_endpoint_t) : rtp wl_result :=
  if en_closing e then mret WL_ERR_NOT_INITIALIZED
  else
    linked ← call Wl_endpoint_link;
    if negb linked then mret WL_ERR_NOT_INITIALIZED else call (Wl_rpc_async_cancel async_call).

(** ** Asynchronous calls *)

(** [fci_device_endpoint_*_submit_at]. *)
Definition endpoint_submit_at (c : rpc) (request : wstruct) (timeout now : Z) (callback : rpc_callback)
    (e : fci_device_endpoint_t) : rtp (wl_result * Z) :=
  if en_closing e then mret (WL_ERR_NOT_INITIALIZED, 0)
  else call (Wl_rpc_async_submit (rpc_request_id c) (rpc_response_id c) timeout now
    (managed_encode_submission c request) {| ob_rpc := c; ob_callback := callback |}).

(** [fci_device_endpoint_*_async]. *)
Definition endpoint_async (c : rpc) (request : wstruct) (timeout : Z) (callback : rpc_callback)
    (e : fci_device_endpoint_t) : rtp (wl_result * Z) :=
  if en_closing e then mret (WL_ERR_NOT_INITIALIZED, 0)
  else
    '(error, now) ← call Wl_endpoint_now;
    if negb (bool_decide (error = WL_OK)) then mret (error, 0)
    else endpoint_submit_at c request timeout now callback e.

(** ** Synchronous calls *)

(** [fci_device_endpoint_*_proxy_submit]: run by the owner for the frame of a
    caller on another thread. *)
Definition endpoint_proxy_submit (c : rpc) (request : wstruct) (deadline : Z) (frame notify : Z)
    (e : fci_device_endpoint_t) : rtp (wl_result * Z * fci_device_endpoint_t) :=
  '(error, now) ← call Wl_endpoint_now;
  if negb (bool_decide (error = WL_OK)) then mret (error, 0, e)
  else
    let remaining := u32 (deadline - now) in
    if (remaining =? 0) || (remaining >? 2147483647) then mret (WL_ERR_TIMEOUT, 0, e)
    else
      let e := match en_frames e frame with
        | None => e
        | Some f => set_frame e frame (Some
            {| sf_done := sf_done f; sf_result := sf_result f; sf_response := sf_response f;
               sf_notify := Some notify |})
        end in
      '(submitted, async_call) ← endpoint_submit_at c request remaining now (CbSync frame) e;
      mret (submitted, async_call, e).

(** The frame's [result] before the call. *)
Definition completion0 : rpc_completion :=
  {| cp_status := WL_RPC_FAILED; cp_rejection := 0; cp_local_error := WL_OK;
     cp_codec_error := WL_CODEC_OK; cp_runtime_error := WL_RPC_OK |}.
Definition frame0 (response : wstruct) : sync_frame :=
  {| sf_done := false; sf_result := completion0; sf_response := response; sf_notify := None |}.

Definition local_error (error : wl_result) (c : rpc_completion) : rpc_completion :=
  {| cp_status := cp_status c; cp_rejection := cp_rejection c; cp_local_error := error;
     cp_codec_error := cp_codec_error c; cp_runtime_error := cp_runtime_error c |}.

Definition frame_done (frame : Z) (e : fci_device_endpoint_t) : bool :=
  match en_frames e frame with Some f => sf_done f | None => false end.

(** The loop of [fci_device_endpoint_*_sync]; nothing when it has not ended
    after [fuel] passes. *)
Fixpoint sync_wait (fuel : nat) (frame : Z) (e : fci_device_endpoint_t)
    : rtp (option (wl_result * fci_device_endpoint_t)) :=
  match fuel with
  | O => mret None
  | S fuel =>
      if frame_done frame e then mret (Some (WL_OK, e))
      else
        '(error, e) ← fci_device_endpoint_step e;
        if frame_done frame e || negb (bool_decide (error = WL_OK)) then mret (Some (error, e))
        else
          '(error, (pending, deadline)) ← call Wl_endpoint_get_hint;
          if negb (bool_decide (error = WL_OK)) then mret (Some (error, e))
          else if (pending : bool) || (deadline =? 0) then sync_wait fuel frame e
          else
            waited ← call (Waiter_wait deadline);
            match waited with
            | WL_OK | WL_ERR_NO_DATA => sync_wait fuel frame e
            | error => mret (Some (error, e))
            end
  end.

(** [fci_device_endpoint_*_sync]: [executor] and [waiter] are whether the
    platform has one; the completion and the caller's response. *)
Definition endpoint_sync (executor waiter : bool) (fuel : nat) (c : rpc) (request response : wstruct)
    (timeout frame : Z) (e : fci_device_endpoint_t)
    : rtp (option (rpc_completion * wstruct * fci_device_endpoint_t)) :=
  let failed error := mret (Some (local_error error completion0, response, e)) in
  if executor then
    (* the owner runs [endpoint_proxy_submit] and [sync_done] for the frame meanwhile *)
    '(result, received) ← call (Executor_invoke frame timeout);
    mret (Some (result, default response received, e))
  else if en_stepping e || en_closing e || en_sync_waiting e then failed WL_ERR_REENTRANT
  else
    linked ← call Wl_endpoint_link;
    if negb linked then failed WL_ERR_NOT_INITIALIZED
    else if negb waiter then failed WL_ERR_NOT_SUPPORTED
    else
      let e := set_frame (set_sync_waiting e true) frame (Some (frame0 response)) in
      '(error, async_call) ← endpoint_async c request timeout (CbSync frame) e;
      let leave (result : option rpc_completion) e :=
        let f := default (frame0 response) (en_frames e frame) in
        mret (Some (default (sf_result f) result, sf_response f,
                    set_frame (set_sync_waiting e false) frame None)) in
      if decide (error = WL_OK) then
        waited ← sync_wait fuel frame e;
        match waited with
        | None => mret None
        | Some (error, e) =>
            if frame_done frame e then leave None e
            else
              completions ← call (Wl_rpc_async_cancel_complete async_call);
              e ← run_completions completions (set_stepping e true);
              let e := set_stepping e false in
              let f := default (frame0 response) (en_frames e frame) in
              leave (Some
                {| cp_status := if decide (error = WL_ERR_CANCELLED) then WL_RPC_CANCELLED else WL_RPC_FAILED;
                   cp_rejection := cp_rejection (sf_result f); cp_local_error := error;
                   cp_codec_error := cp_codec_error (sf_result f);
                   cp_runtime_error := cp_runtime_error (sf_result f) |}) e
        end
      else leave (Some (local_error error completion0)) e.
End completions.

(** ** Manual calls

    [fci_device_advanced.h], lines 8-127 and their like. *)

(** [fci_device_endpoint_runtime]. *)
Definition fci_device_endpoint_runtime (e : fci_device_endpoint_t) : rtp (option fci_device_runtime_t) :=
  linked ← call Wl_endpoint_link;
  mret (if (linked : bool) then Some (en_runtime e) else None).

(** [fci_device_endpoint_*_record_result]. *)
Definition manual_record_result (r : runtime_result) (e : fci_device_endpoint_t)
    : wl_rpc_err * fci_device_endpoint_t :=
  let e := if negb (en_stepping e) || result_ok (en_result e) then set_result e r else e in
  (if result_ok r then WL_RPC_OK
   else if negb (bool_decide (d_rpc_result (result_rpc r) = WL_RPC_OK)) then d_rpc_result (result_rpc r)
   else if decide (r_domain r = FCI_DEVICE_RUNTIME_INVALID_ARGUMENT) then WL_RPC_ERR_INVALID_ARG
   else WL_RPC_ERR_INVALID_STATE, e).

(** [fci_device_*_call_t]. *)
Record manual_handle := {
  mh_owner : Z;
  mh_incarnation : Z;
  mh_handle : Z
}.

(** [fci_device_endpoint_*_call]; no call where [*out_call] is cleared. *)
Definition manual_call (c : rpc) (request : wstruct) (timeout : Z) (e : fci_device_endpoint_t)
    : rtp (res wl_rpc_err manual_handle * fci_device_endpoint_t) :=
  runtime ← fci_device_endpoint_runtime e;
  match runtime with
  | None => mret (Err WL_RPC_ERR_NOT_INITIALIZED, e)
  | Some rt =>
      '(_, now) ← call Wl_endpoint_now;
      result ← managed_start c rt request timeout now;
      let '(error, e) := manual_record_result result e in
      if negb (bool_decide (error = WL_RPC_OK)) then mret (Err error, e)
      else
        handle ← call (Wl_rpc_client_get_handle (d_operation_id (result_rpc result)));
        mret (match handle with
              | Err error => Err error
              | Ok h => Ok {| mh_owner := en_self e; mh_incarnation := en_incarnation e; mh_handle := h |}
              end, e)
  end.

(** [fci_device_endpoint_*_call_get]. *)
Definition manual_call_get (c : rpc) (h : manual_handle) (e : fci_device_endpoint_t)
    : rtp (res wl_rpc_err wl_rpc_client_result_t) :=
  runtime ← fci_device_endpoint_runtime e;
  match runtime with
  | None => mret (Err WL_RPC_ERR_NOT_INITIALIZED)
  | Some _ =>
      if negb (mh_owner h =? en_self e) || negb (mh_incarnation h =? en_incarnation e)
      then mret (Err WL_RPC_ERR_NOT_FOUND)
      else
        got ← call (Wl_rpc_client_get_by_handle (mh_handle h));
        mret (match got with
              | Err error => Err error
              | Ok client => if is_call_of c client then Ok client else Err WL_RPC_ERR_RESPONSE_MISMATCH
              end)
  end.

(** [fci_device_*_result_t]; the response where [response_valid]. *)
Record manual_result := {
  mr_state : wl_rpc_client_state;
  mr_application_status : Z;
  mr_link_result : wl_result;
  mr_runtime_error : wl_rpc_err;
  mr_response : option wstruct
}.

(** [fci_device_endpoint_*_inspect]. *)
Definition manual_inspect (c : rpc) (h : manual_handle) (e : fci_device_endpoint_t)
    : rtp (wl_rpc_err * option manual_result * fci_device_endpoint_t) :=
  got ← manual_call_get c h e;
  match got with
  | Err error => mret (error, None, e)
  | Ok client =>
      let result response :=
        {| mr_state := rc_state client; mr_application_status := rc_application_status client;
           mr_link_result := rc_link_result client; mr_runtime_error := rc_runtime_error client;
           mr_response := response |} in
      if negb (bool_decide (rc_state client = WL_RPC_CLIENT_COMPLETED)) then
        mret (WL_RPC_OK, Some (result None), e)
      else
        let '(decoded, response) := managed_decode c client [] in
        if result_ok decoded then mret (WL_RPC_OK, Some (result (Some response)), e)
        else
          mret (if decide (d_rpc_result (result_rpc decoded) = WL_RPC_OK) then WL_RPC_ERR_INVALID_STATE
                else d_rpc_result (result_rpc decoded),
                Some (result None), set_result e decoded)
  end.

(** [fci_device_endpoint_*_release]. *)
Definition manual_release (c : rpc) (h : manual_handle) (e : fci_device_endpoint_t) : rtp wl_rpc_err :=
  got ← manual_call_get c h e;
  match got with
  | Err error => mret error
  | Ok _ => call (Wl_rpc_client_release_handle (mh_handle h))
  end.

(** [fci_device_endpoint_*_cancel]. *)
Definition manual_cancel (c : rpc) (h : manual_handle) (e : fci_device_endpoint_t) : rtp wl_rpc_err :=
  got ← manual_call_get c h e;
  match got with
  | Err error => mret error
  | Ok client =>
      error ← call (Wl_rpc_client_cancel_handle (mh_handle h));
      if bool_decide (error = WL_RPC_OK) && negb (rc_tx_handle client =? 0)
      then call (Wl_tx_cancel (rc_tx_handle client)) ;; mret error
      else mret error
  end.
