(* ===== verification/RuntimeSamples.v ===== *)
(** * A sample call

    The runtime, the messages and the answers of one call, of
    [motor_register_read], at which the theorems about the runtime are tried. *)

From S2P Require Import Prelude WlcWire WlcSchema WlcCodec WlcValue FciMessages DeviceTypes Endpoint EndpointOps FciRpc Prog RuntimeCalls ManagedRpc RuntimeService RuntimeDispatch RpcEndpoint.

Definition sample_rpc : rpc := motor_register_read_rpc.
Definition sample_request : wstruct := [SOpt true (VInt 3); SOpt true (VInt 7)].
Definition sample_response : wstruct := [SOpt true (VInt 3); SOpt true (VInt 7); SOpt true (VInt 1065353216)].

(** The messages that carry them, of operation 5 in session 99. *)
Definition sample_request_bytes : bytes :=
  [0; 2; 1; 0; 0; 0; 0; 5; 0; 0; 0; 0; 0; 0; 0; 0; 0; 0; 0; 99; 16; 3; 24; 7].
Definition sample_response_bytes : bytes :=
  [0; 2; 2; 0; 0; 0; 0; 5; 0; 0; 0; 0; 0; 0; 0; 0; 0; 0; 0; 99; 24; 3; 32; 7; 45; 63; 128; 0; 0].

Definition sample_runtime (server : bool) : fci_device_runtime_t :=
  {| rn_self := 1; rn_incarnation := 1; rn_latest := fun _ => true; rn_client := true;
     rn_server := server; rn_async := true; rn_encode_scratch := true; rn_peer_observation := None;
     rn_retiring_tx := 0; rn_bulk_handler := true; rn_bulk_scratch := Some [];
     rn_response_scratch := fun _ => Some [] |}.

Definition sample_token : request_token :=
  {| tk_owner := 1; tk_incarnation := 1;
     tk_request :=
       {| sr_identity :=
            {| id_peer_session := 99; id_operation_id := 5; id_request_message_id := 25117;
               id_response_message_id := 25118 |};
          sr_generation := 1 |} |}.
Definition sample_cached : wl_rpc_server_response_t :=
  {| sp_identity := sr_identity (tk_request sample_token); sp_application_status := 0;
     sp_data := sample_response_bytes |}.

Definition sample_client (state : wl_rpc_client_state) (data : option bytes) : wl_rpc_client_result_t :=
  {| rc_operation_id := 5; rc_request_message_id := 25117; rc_response_message_id := 25118;
     rc_state := state; rc_application_status := 0; rc_link_result := WL_OK;
     rc_runtime_error := WL_RPC_OK; rc_tx_handle := 12; rc_response_data := data |}.

Definition sample_event (type : wl_event_type) (id : Z) (payload : bytes) : wl_event_t :=
  {| ev_type := type; ev_message_id := id; ev_payload := payload; ev_handle := 0 |}.
Definition response_event : wl_event_t := sample_event WL_EVT_RELIABLE_RX 25118 sample_response_bytes.

(** The library's account of a call that has completed. *)
Definition sample_completion (client : wl_rpc_client_result_t) : rpc_completion :=
  {| cp_status := if decide (rc_state client = WL_RPC_CLIENT_COMPLETED) then WL_RPC_SUCCESS else WL_RPC_FAILED;
     cp_rejection := 0; cp_local_error := WL_OK; cp_codec_error := WL_CODEC_OK;
     cp_runtime_error := WL_RPC_OK |}.

Definition sample_endpoint : fci_device_endpoint_t :=
  {| en_self := 2; en_stepping := false; en_closing := false; en_sync_waiting := false;
     en_incarnation := 1; en_event_budget := 16; en_runtime := sample_runtime false;
     en_last_service_result := WL_RPC_OK; en_last_service := service0; en_result := result0;
     en_on_result := true; en_completion := completion0; en_value := []; en_frames := fun _ => None |}.

(** What the dispatch of the response calls. *)
Definition response_trace : list (event rt_call) :=
  [ Event Wl_link_session_id 99; Event (Wl_rpc_client_poll 6) (WL_RPC_OK, 0);
    Event (Wl_rpc_client_get 5) (Ok (sample_client WL_RPC_CLIENT_WAIT_RESPONSE None));
    Event (Wl_rpc_client_on_response 25118 5 0 sample_response_bytes) WL_RPC_OK;
    Event (Wl_event_release response_event) tt ].

Lemma response_trace_runs sizeof alignof :
  exists r rt, runs (fci_device_runtime_dispatch_event sizeof alignof response_event (sample_runtime false) 6)
    response_trace (r, rt) /\ result_ok r = true /\ r_event_consumed r = true.
Proof. eexists _, _. split; [run_trace|]. split; reflexivity. Defined.

(** ** A library and a platform that answer

    Their answers are the same each time, but for the hooks that a pass runs and
    the calls that a service ends, which come from a script. *)

Record library := {
  lib_hooks : list (list hook);
  lib_ended : list (list (rpc_observer * wl_rpc_client_result_t));
  lib_client : wl_rpc_client_result_t
}.

Definition library_answer {R} (c : rt_call R) (s : library) : R * library :=
  match c in rt_call R return R * library with
  | Wl_link_session_id => (99, s)
  | Wl_event_release _ => (tt, s)
  | Wl_tx_take _ => (WL_OK, s)
  | Wl_tx_cancel _ => (tt, s)
  | Wl_tx_payload_claim _ _ => ((WL_OK, 226), s)
  | Wl_tx_payload_abort => (tt, s)
  | Wl_tx_payload_commit _ _ => ((WL_OK, 12), s)
  | Wl_send_reliable _ _ _ => ((WL_OK, 12), s)
  | Wl_send_unreliable _ _ => (WL_OK, s)
  | Wl_rpc_client_begin _ _ _ _ => ((WL_RPC_OK, 5), s)
  | Wl_rpc_client_link_failed _ _ => (WL_RPC_OK, s)
  | Wl_rpc_client_bind_tx _ _ => (WL_RPC_OK, s)
  | Wl_rpc_client_get _ => (Ok (lib_client s), s)
  | Wl_rpc_client_get_handle _ => (Ok 71, s)
  | Wl_rpc_client_get_by_handle _ => (Ok (lib_client s), s)
  | Wl_rpc_client_release _ => (WL_RPC_OK, s)
  | Wl_rpc_client_release_handle _ => (WL_RPC_OK, s)
  | Wl_rpc_client_cancel_handle _ => (WL_RPC_OK, s)
  | Wl_rpc_client_poll _ => ((WL_RPC_OK, 0), s)
  | Wl_rpc_client_on_response _ _ _ _ => (WL_RPC_OK, s)
  | Wl_rpc_client_on_tx_event _ => (WL_RPC_OK, s)
  | Wl_rpc_client_get_deadline_hint _ => ((WL_RPC_OK, 40), s)
  | Wl_rpc_client_init _ _ _ _ _ _ => (WL_RPC_OK, s)
  | Wl_rpc_server_on_tx_event _ => (WL_RPC_ERR_NOT_FOUND, s)
  | Wl_rpc_server_response_prepare _ => ((WL_RPC_OK, 226), s)
  | Wl_rpc_server_response_commit _ _ _ _ => ((WL_RPC_OK, sample_cached), s)
  | Wl_rpc_server_response_acquire => (Err WL_RPC_ERR_NOT_FOUND, s)
  | Wl_rpc_server_response_defer _ => (WL_RPC_OK, s)
  | Wl_rpc_server_response_submitted _ _ => (WL_RPC_OK, s)
  | Wl_rpc_server_response_sent _ => (WL_RPC_OK, s)
  | Wl_rpc_server_expired_acquire _ => (Err WL_RPC_ERR_NOT_FOUND, s)
  | Wl_rpc_server_poll _ => ((WL_RPC_OK, 0), s)
  | Wl_rpc_server_get_deadline_hint _ => ((WL_RPC_OK, 60), s)
  | Wl_rpc_peer_observe session => ((WL_RPC_OK, {| po_session := session; po_changed := true |}, []), s)
  | Wl_rpc_async_retire_tx _ => (false, s)
  | Wl_rpc_async_submit _ _ _ _ _ _ => ((WL_OK, 8), s)
  | Wl_rpc_async_cancel _ => (WL_OK, s)
  | Wl_rpc_async_cancel_complete _ => ([], s)
  | Wl_rpc_async_service _ =>
      ((WL_OK, Z.of_nat (length (hd [] (lib_ended s))), hd [] (lib_ended s)),
       {| lib_hooks := lib_hooks s; lib_ended := tl (lib_ended s); lib_client := lib_client s |})
  | Wl_rpc_async_notification_deadline => (50, s)
  | Wl_rpc_async_init _ _ => (WL_OK, s)
  | Wl_rpc_async_close => ((WL_OK, []), s)
  | Wl_latest_write_claim _ => ((WL_OK, {| cs_address := 64; cs_size := 128 |}), s)
  | Wl_latest_write_abort _ => (WL_OK, s)
  | Wl_latest_write_publish _ _ => (WL_OK, s)
  | Wl_latest_read_acquire _ =>
      ((WL_ERR_NO_DATA, {| lv_value := None; lv_size := 0; lv_generation := 0 |}), s)
  | Wl_latest_init _ _ _ _ => (WL_OK, s)
  | Wl_latest_read_release _ _ => (WL_OK, s)
  | Wl_endpoint_link => (true, s)
  | Wl_endpoint_now => ((WL_OK, 5), s)
  | Wl_endpoint_step _ =>
      ((WL_OK, hd [] (lib_hooks s)),
       {| lib_hooks := tl (lib_hooks s); lib_ended := lib_ended s; lib_client := lib_client s |})
  | Wl_endpoint_get_hint => ((WL_OK, (false, 5)), s)
  | Wl_session_next previous => ((WL_OK, previous + 1), s)
  | Wl_endpoint_init _ => (WL_OK, s)
  | Wl_endpoint_close => (tt, s)
  | Allocate _ _ => (Some 4096, s)
  | Deallocate _ _ _ => (tt, s)
  | Waiter_wait _ => (WL_ERR_NO_DATA, s)
  | Executor_invoke _ _ => ((completion0, None), s)
  | On_result _ => (tt, s)
  | Bulk_status_handler _ => (0, s)
  | Completion_callback _ _ _ _ => (tt, s)
  | Sync_notify _ _ => (tt, s)
  end.

Abbreviation play p s := (interp (@library_answer) p s).

Lemma played {A B} (p : rtp (A * B)) (s : library) : runs p (fst (play p s)) (fst (snd (play p s)), snd (snd (play p s))).
Proof. rewrite <- surjective_pairing. apply interp_runs. Qed.
