(* ===== verification/RpcProps.v ===== *)
(** * Managed calls from end to end

    What a server commits for a call is what the client that made the call
    accepts, hands to the library, and decodes; and what a client sends is the
    request of the caller. *)

From Stdlib Require Import String.
From S2P Require Import Prelude WlcWire WlcSchema WlcCodec WlcRoundtrip WlcValue FciMessages FciProperties.
From S2P Require Import DeviceTypes Endpoint EndpointOps FciRpc Prog RuntimeCalls ManagedRpc RuntimeService RuntimeDispatch RpcEndpoint RuntimeSamples.

Lemma managed_descs c : In c managed_rpcs -> In (rpc_request c) fci_descs /\ In (rpc_response c) fci_descs.
Proof.
  intros Hc. cbn in Hc. repeat (destruct Hc as [<-|Hc]; [split; cbn; in_descs|]). done.
Qed.

Lemma case_of_managed c : In c managed_rpcs -> case_of (rpc_response_id c) = CResponse c.
Proof. intros Hc. cbn in Hc. repeat (destruct Hc as [<-|Hc]; [reflexivity|]). done. Qed.

(** ** What is committed *)

(** The identity of a call that can be named in a header. *)
Definition identity_ok (id : wl_rpc_request_identity_t) : Prop :=
  in_u 32 (id_operation_id id) /\ id_operation_id id <> 0 /\
  in_u 64 (id_peer_session id) /\ id_peer_session id <> 0.

Definition identity_header (status : Z) (id : wl_rpc_request_identity_t) : rpc_header :=
  {| h_operation_id := id_operation_id id; h_status := status; h_session := id_peer_session id |}.

Lemma identity_header_ok status id :
  identity_ok id -> in_s 32 status -> header_ok 2 (identity_header status id).
Proof. intros (Hi & Hi0 & Hs & Hs0) Hst. by unfold header_ok. Qed.

(** An ans that succeeds is one prepared buffer, committed once: the header
    of the call, and after it the response when the call succeeded. *)
Lemma finish_runs request status now encode id d l r :
  runs (fci_device_rpc_finish_response request status now encode id d) l r -> result_ok r = true ->
  exists capacity cached n payload,
    let data := fci_device_rpc_header_write 2 (identity_header status (sr_identity request)) ++ payload in
    l = [Event (Wl_rpc_server_response_prepare request) (WL_RPC_OK, capacity);
         Event (Wl_rpc_server_response_commit request status data now) (WL_RPC_OK, cached)] /\
    20 <= capacity /\
    (if status =? 0 then encode (capacity - 20) else (Ok 0, [])) = (Ok n, payload).
Proof.
  intros Hr Hok. unfold fci_device_rpc_finish_response in Hr. step_call Hr p. destruct p as [prepared capacity].
  case_bool_decide as Hp; [|destruct Hr as [_ <-]; done].
  cbn [negb] in Hr. rewrite Hp in Hr |- *.
  destruct (Z.ltb_spec capacity 20); [by destruct Hr as [_ <-]|].
  destruct (if status =? 0 then encode (capacity - 20) else (Ok 0, [])) as [[n|s] payload] eqn:He;
    [|by destruct Hr as [_ <-]].
  step_call Hr q. destruct q as [committed cached]. destruct Hr as [-> Hr].
  destruct (decide (committed = WL_RPC_OK)) as [->|]; [|by subst r].
  exists capacity, cached, n, payload. done.
Qed.

Lemma managed_finish_runs c rt t status response now owned l r :
  runs (managed_finish c rt t status response now owned) l r -> result_ok r = true ->
  request_of c (tk_request t) = true /\ (status = 0 -> is_Some response) /\
  runs (fci_device_rpc_finish_response (tk_request t) status now
    (managed_encode_response c owned (default [] response)) (rpc_response_id c)
    (with_application status detail0)) l r.
Proof.
  intros Hr Hok. unfold managed_finish in Hr.
  destruct (negb (rn_server rt) || negb (token_of_runtime rt t) || _) eqn:Hg; [by destruct Hr as [_ <-]|].
  destruct (request_of c (tk_request t)); [|by destruct Hr as [_ <-]].
  split; [done|]. split; [|done]. intros ->. rewrite !orb_false_iff in Hg. destruct Hg as [_ Hg].
  cbn in Hg. apply negb_false_iff, bool_decide_eq_true in Hg. done.
Qed.

(** ** A response at the client *)

(** A response of version 2 that arrives for the call it names is handed to the
    library as it is. *)
Lemma response_case_delivers c e rt now l o rt' h client :
  runs (response_case c e rt now) l (o, rt') ->
  ev_type e = WL_EVT_RELIABLE_RX -> rn_client rt = true ->
  fci_device_rpc_header_read 2 (ev_payload e) = Ok h ->
  (h_status h <> 0 -> length (ev_payload e) = 20%nat) ->
  (h_status h = 0 -> exists scratch, rn_response_scratch rt (rpc_response_id c) = Some scratch /\
     fst (wlc_decode (rpc_response c) (drop 20 (ev_payload e)) scratch) = WL_CODEC_OK) ->
  (forall s, In (Event Wl_link_session_id s) l -> s = h_session h) ->
  (forall got, In (Event (Wl_rpc_client_get (h_operation_id h)) got) l -> got = Ok client) ->
  is_call_of c client = true -> rpc_pending (rc_state client) = true ->
  exists ans,
    In (Event (Wl_rpc_client_on_response (rpc_response_id c) (h_operation_id h) (h_status h)
          (ev_payload e)) ans) l /\ fst o = rpc_domain ans.
Proof.
  intros Hr Hty Hcl Hh Hlen Hdec Hses Hget Hof Hpend. unfold response_case in Hr.
  rewrite bool_decide_eq_true_2, Hcl, Hh in Hr by done. cbn [negb] in Hr.
  replace (negb (h_status h =? 0) && negb (length (ev_payload e) =? 20)%nat) with false in Hr.
  2: { destruct (Z.eqb_spec (h_status h) 0); [done|]. by rewrite Hlen. }
  step_call Hr s. rewrite (Hses s) in Hr by (by left). rewrite Z.eqb_refl in Hr. cbn [negb] in Hr.
  apply runs_bind in Hr as (l1 & l2 & [] & -> & Hp & Hr). step_call Hr got.
  rewrite (Hget got) in Hr by (right; apply in_app_iff; right; by left).
  rewrite Hof, Hpend in Hr. cbn [negb] in Hr.
  assert (forall d rt2, runs (result ← call (Wl_rpc_client_on_response (rpc_response_id c)
      (h_operation_id h) (h_status h) (ev_payload e));
      mret (rpc_domain result, DETAIL_RPC (with_rpc result
        (with_length (Z.of_nat (length (ev_payload e))) d)), rt2)) l (o, rt') ->
    exists ans, In (Event (Wl_rpc_client_on_response (rpc_response_id c) (h_operation_id h)
      (h_status h) (ev_payload e)) ans) (Event Wl_link_session_id s :: l1 ++
        Event (Wl_rpc_client_get (h_operation_id h)) got :: l) /\ fst o = rpc_domain ans) as Hdeliver.
  { intros d rt2 Hd. step_call Hd ans. destruct Hd as [-> Ho]. exists ans.
    split; [|by injection Ho as <- _]. right. apply in_app_iff. right. right. by left. }
  destruct (Z.eqb_spec (h_status h) 0) as [H0|]; cbn [negb] in Hr; [|by eapply Hdeliver].
  destruct (Hdec H0) as (scratch & Hs & Hok). rewrite Hs in Hr. cbn [negb] in Hr.
  destruct (wlc_decode _ _ scratch) as [codec response]. cbn in Hok. subst codec.
  destruct (decide _) as [_|]; [|done]. by eapply Hdeliver.
Qed.

(** ** The round trip of a response *)

(** The response of a completion is the value that was encoded after the header. *)
Lemma prepare_value async c client e header payload v :
  cp_status (async client) = WL_RPC_SUCCESS ->
  response_bytes client = header ++ payload -> length header = 20%nat ->
  value_decode (rpc_response c) payload = Ok v ->
  cp_status (en_completion (endpoint_prepare async c client e)) = WL_RPC_SUCCESS /\
  en_value (endpoint_prepare async c client e) = v.
Proof.
  intros Hs Hb Hh Hv. unfold endpoint_prepare. rewrite Hs, Hb, decide_True by done.
  replace (_ <? 20)%nat with false by (symmetry; apply Nat.ltb_ge; rewrite length_app; lia).
  by rewrite <- Hh, drop_app_length, Hv.
Qed.

Lemma dispatch_managed c sizeof alignof e rt now l r rt' :
  In c managed_rpcs -> ev_type e = WL_EVT_RELIABLE_RX -> ev_message_id e = rpc_response_id c ->
  runs (fci_device_runtime_dispatch_event sizeof alignof e rt now) l (r, rt') ->
  exists l0 o, l = l0 ++ [Event (Wl_event_release e) tt] /\
    runs (response_case c e rt now) l0 (o, rt') /\ r_domain r = fst o.
Proof.
  intros Hc Hty Hid. unfold fci_device_runtime_dispatch_event, is_tx_end, is_rx. rewrite Hty.
  cbn [negb]. unfold dispatch_case. rewrite Hid, case_of_managed by done.
  intros (l1 & l2 & [[domain detail] rt2] & -> & H1 & H2)%runs_bind.
  step_call H2 u. destruct u. apply runs_ret in H2 as [-> [= <- <-]].
  by exists l1, (domain, detail).
Qed.

(** What the answer of a server carries: the response of a call that succeeded,
    no more than the status of one that did not. *)
Definition answer_of (c : rpc) (status : Z) (response : option wstruct) : Prop :=
  status = 0 -> exists v, response = Some v /\ value_normal (rpc_response c) v.

(** C9: A managed call comes back as it was answered.  When a server's answer
    succeeds it has committed one message that fits its buffer; and when that
    message arrives, reliably, at the client whose session the call named, while
    the call is pending, the dispatch hands it to the library under the id and
    the status of the call; when the library then completes the call with that
    message, the application is given the very value that the server answered
    with. *)
Theorem managed_response_roundtrip c rts t status response now l r :
  In c managed_rpcs -> in_s 32 status -> answer_of c status response ->
  identity_ok (sr_identity (tk_request t)) ->
  runs (managed_finish c rts t status response now true) l r -> result_ok r = true ->
  let id := sr_identity (tk_request t) in
  exists capacity cached data,
    l = [Event (Wl_rpc_server_response_prepare (tk_request t)) (WL_RPC_OK, capacity);
         Event (Wl_rpc_server_response_commit (tk_request t) status data now) (WL_RPC_OK, cached)] /\
    Z.of_nat (length data) <= capacity /\
    (forall sizeof alignof e rt now' l' r' rt' client,
       ev_type e = WL_EVT_RELIABLE_RX -> ev_message_id e = rpc_response_id c -> ev_payload e = data ->
       rn_client rt = true -> is_Some (rn_response_scratch rt (rpc_response_id c)) ->
       runs (fci_device_runtime_dispatch_event sizeof alignof e rt now') l' (r', rt') ->
       (forall s, In (Event Wl_link_session_id s) l' -> s = id_peer_session id) ->
       (forall got, In (Event (Wl_rpc_client_get (id_operation_id id)) got) l' -> got = Ok client) ->
       is_call_of c client = true -> rpc_pending (rc_state client) = true ->
       exists ans,
         In (Event (Wl_rpc_client_on_response (rpc_response_id c) (id_operation_id id) status data) ans) l' /\
         r_domain r' = rpc_domain ans) /\
    (forall async client e,
       rc_response_data client = Some data -> cp_status (async client) = WL_RPC_SUCCESS -> status = 0 ->
       cp_status (en_completion (endpoint_prepare async c client e)) = WL_RPC_SUCCESS /\
       Some (en_value (endpoint_prepare async c client e)) = response).
Proof.
  intros Hc Hst Hresp Hid Hr Hok id.
  apply managed_finish_runs in Hr as (_ & _ & Hr); [|done].
  apply finish_runs in Hr as (capacity & cached & n & payload & -> & Hcap & Henc); [|done].
  set (header := fci_device_rpc_header_write 2 (identity_header status id)) in *.
  exists capacity, cached, (header ++ payload). split; [done|].
  destruct (managed_descs c Hc) as [_ Hd].
  assert (length header = 20%nat) as Hlen by done.
  assert (Z.of_nat (length payload) <= capacity - 20 /\
    (status = 0 -> (forall old, fst (wlc_decode (rpc_response c) payload old) = WL_CODEC_OK) /\
       exists v, response = Some v /\ value_decode (rpc_response c) payload = Ok v) /\
    (status <> 0 -> payload = [])) as (Hfit & Hdec & Hnil).
  { destruct (Z.eqb_spec status 0) as [H0|].
    - destruct (Hresp H0) as (v & -> & Hv).
      destruct (value_encode_sound _ v _ n payload Hd Hv Henc) as (<- & Hle & Ho & Hdv).
      split; [done|]. split; [|done]. intros _. split; [done|]. by exists v.
    - injection Henc as _ <-. cbn. split; [lia|]. by split. }
  split; [rewrite length_app; lia|]. split.
  - intros sizeof alignof e rt now' l' r' rt' client Hty Hmid Hpl Hcl [scratch Hscr] Hrun Hses Hget Hof Hp.
    apply (dispatch_managed c) in Hrun as (l0 & o & -> & Hrun & ->); [|done..].
    destruct (response_case_delivers c e rt now' l0 o rt' (identity_header status id) client)
      as (ans & Hin & Ho); try done.
    + rewrite Hpl. by apply header_read_write, identity_header_ok.
    + intros Hn. by rewrite Hpl, length_app, Hlen, (Hnil Hn).
    + intros H0. exists scratch. split; [done|]. rewrite Hpl, <- Hlen, drop_app_length.
      by apply Hdec.
    + intros s Hs. apply Hses, in_app_iff. by left.
    + intros got Hg. apply Hget, in_app_iff. by left.
    + exists ans. rewrite Hpl in Hin. split; [apply in_app_iff; by left|done].
  - intros async client e Hdata Hs H0. destruct (Hdec H0) as (_ & v & -> & Hv).
    destruct (prepare_value async c client e header payload v) as [? ->]; try done.
    unfold response_bytes. by rewrite Hdata.
Qed.

(** ** The round trip of a request *)

Definition submission_header (operation_id session : Z) : rpc_header :=
  {| h_operation_id := operation_id; h_status := 0; h_session := session |}.

(** A started call has sent one reliable message, the header and then the
    request, and bound the transmission to the call. *)
Lemma managed_start_runs c rt request timeout now l r :
  runs (managed_start c rt request timeout now) l r -> result_ok r = true ->
  exists operation_id capacity session n payload handle,
    let data := fci_device_rpc_header_write 1 (submission_header operation_id session) ++ payload in
    l = [Event (Wl_rpc_client_begin (rpc_request_id c) (rpc_response_id c) timeout now) (WL_RPC_OK, operation_id);
         Event (Wl_tx_payload_claim (rpc_request_id c) true) (WL_OK, capacity);
         Event Wl_link_session_id session;
         Event (Wl_tx_payload_commit data now) (WL_OK, handle);
         Event (Wl_rpc_client_bind_tx operation_id handle) WL_RPC_OK] /\
    20 <= capacity /\ wlc_encode (rpc_request c) request (capacity - 20) = (Ok n, payload) /\
    d_operation_id (result_rpc r) = operation_id /\ d_handle (result_rpc r) = handle.
Proof.
  assert (forall c id domain d l r, domain <> FCI_DEVICE_RUNTIME_OK ->
    runs (start_failed c id domain d) l r -> result_ok r = true -> False) as Hfailed.
  { intros c' id domain d l' r' Hd Hr Hok. unfold start_failed in Hr. step_call Hr failed.
    apply runs_bind in Hr as (l1 & l2 & released & -> & _ & [_ <-]%runs_ret).
    unfold result_ok in Hok. by apply bool_decide_eq_true in Hok. }
  unfold managed_start. destruct (negb (rn_client rt)); [by intros [_ <-]|].
  intros Hr Hok. step_call Hr p. destruct p as [begun id].
  destruct (decide (begun = WL_RPC_OK)) as [->|]; [|by destruct Hr as [_ <-]].
  step_call Hr p. destruct p as [claimed capacity].
  destruct (decide (claimed = WL_OK)) as [->|]; [|by eapply Hfailed in Hr].
  destruct (Z.ltb_spec capacity 20); [step_call Hr u; by eapply Hfailed in Hr|].
  step_call Hr session.
  destruct (wlc_encode (rpc_request c) request (capacity - 20)) as [[n|s] payload] eqn:He;
    [|step_call Hr u; by eapply Hfailed in Hr].
  step_call Hr p. destruct p as [committed handle].
  destruct (decide (committed = WL_OK)) as [->|]; [|by eapply Hfailed in Hr].
  step_call Hr bound. apply runs_ret in Hr as [-> <-].
  unfold result_ok, rpc_domain in Hok. cbn in Hok. apply bool_decide_eq_true in Hok.
  destruct (decide (bound = WL_RPC_OK)) as [->|]; [|done].
  by exists id, capacity, session, n, payload, handle.
Qed.

(** A managed request arrives as it was made.  The message that a
    submission encodes fits the buffer it was given, is a request header of its
    operation and session, and holds the caller's value; and a call that is
    started directly commits one such message for its request, under the id
    that the library gave the call and the session of the link, and binds the
    transmission to that call. *)
Theorem managed_request_roundtrip c :
  In c managed_rpcs ->
  (forall v operation_id session capacity data,
     value_normal (rpc_request c) v -> in_u 32 operation_id -> operation_id <> 0 -> in_u 64 session ->
     managed_encode_submission c v operation_id session capacity = Ok data ->
     Z.of_nat (length data) <= capacity /\
     fci_device_rpc_header_read 1 data = Ok (submission_header operation_id session) /\
     value_decode (rpc_request c) (drop 20 data) = Ok v) /\
  (forall rt request timeout now l r,
     valid (rpc_request c) request = true ->
     runs (managed_start c rt request timeout now) l r -> result_ok r = true ->
     let operation_id := d_operation_id (result_rpc r) in
     exists capacity session data,
       l = [Event (Wl_rpc_client_begin (rpc_request_id c) (rpc_response_id c) timeout now) (WL_RPC_OK, operation_id);
            Event (Wl_tx_payload_claim (rpc_request_id c) true) (WL_OK, capacity);
            Event Wl_link_session_id session;
            Event (Wl_tx_payload_commit data now) (WL_OK, d_handle (result_rpc r));
            Event (Wl_rpc_client_bind_tx operation_id (d_handle (result_rpc r))) WL_RPC_OK] /\
       Z.of_nat (length data) <= capacity /\
       (in_u 32 operation_id -> operation_id <> 0 -> in_u 64 session -> session <> 0 ->
        fci_device_rpc_header_read 1 data = Ok (submission_header operation_id session)) /\
       forall old, wlc_decode (rpc_request c) (drop 20 data) old =
         (WL_CODEC_OK, canon (rpc_request c) request)).
Proof.
  intros Hc. destruct (managed_descs c Hc) as [Hd _].
  assert (forall id s, in_u 32 id -> id <> 0 -> in_u 64 s -> s <> 0 -> header_ok 1 (submission_header id s)) as Hh.
  { intros id s Hi Hi0 Hs Hs0. unfold header_ok. cbn. repeat split; done || apply Hi || apply Hs. }
  split.
  - intros v id session capacity data Hv Hi Hi0 Hs. unfold managed_encode_submission.
    destruct (Z.ltb_spec capacity 20); [done|]. destruct (Z.eqb_spec session 0); [done|].
    destruct (value_encode (rpc_request c) v (capacity - 20)) as [[k|] payload] eqn:He; [|done].
    intros Hdata. destruct (value_encode_sound _ v _ k payload Hd Hv He) as (Hn & Hle & _ & Hdv).
    set (header := fci_device_rpc_header_write 1 (submission_header id session)).
    assert (data = header ++ payload) as -> by (unfold header, submission_header; congruence).
    assert (length header = 20%nat) as Hlen by done.
    split; [rewrite length_app; lia|]. split; [by apply header_read_write, Hh|].
    by rewrite <- Hlen, drop_app_length.
  - intros rt request timeout now l r Hv Hr Hok.
    destruct (managed_start_runs _ _ _ _ _ _ _ Hr Hok)
      as (id & capacity & session & n & payload & handle & Hl & Hcap & He & Hid & Hhd).
    destruct (encode_sound _ _ _ _ _ Hd Hv He) as [Hle Hdec].
    set (header := fci_device_rpc_header_write 1 (submission_header id session)) in *.
    assert (length header = 20%nat) as Hlen by done.
    rewrite Hid, Hhd. exists capacity, session, (header ++ payload). split; [done|].
    split; [rewrite length_app; lia|].
    split; [intros; by apply header_read_write, Hh|].
    intros old. by rewrite <- Hlen, drop_app_length.
Qed.

(** ** A sample call *)

Lemma sample_is_managed : In sample_rpc managed_rpcs.
Proof. cbn. tauto. Defined.

Lemma sample_response_normal : value_normal motor_register_read_response_desc sample_response.
Proof. vm_compute. tauto. Defined.

Definition committed_data (l : list (event rt_call)) : bytes :=
  match l with
  | [_; Event c _] => match c with Wl_rpc_server_response_commit _ _ data _ => data | _ => [] end
  | _ => []
  end.

Definition session_answer (ev : event rt_call) : Z :=
  match ev with
  | @Event _ R c a =>
      match c in rt_call R return R -> Z with Wl_link_session_id => fun s => s | _ => fun _ => 0 end a
  end.
Definition get_answer (ev : event rt_call) : res wl_rpc_err wl_rpc_client_result_t :=
  match ev with
  | @Event _ R c a =>
      match c in rt_call R return R -> res wl_rpc_err wl_rpc_client_result_t with
      | Wl_rpc_client_get _ => fun got => got
      | _ => fun _ => Err WL_RPC_OK
      end a
  end.

(** What the server commits arrives at the client, and is the value again. *)
Lemma managed_response_roundtrip_witness :
  exists r,
    runs (managed_finish sample_rpc (sample_runtime true) sample_token 0 (Some sample_response) 6 true)
      [ Event (Wl_rpc_server_response_prepare (tk_request sample_token)) (WL_RPC_OK, 226);
        Event (Wl_rpc_server_response_commit (tk_request sample_token) 0 sample_response_bytes 6)
          (WL_RPC_OK, sample_cached) ] r /\
    result_ok r = true /\
    (exists ans, In (Event (Wl_rpc_client_on_response 25118 5 0 sample_response_bytes) ans) response_trace) /\
    let client := sample_client WL_RPC_CLIENT_COMPLETED (Some sample_response_bytes) in
    Some (en_value (endpoint_prepare sample_completion sample_rpc client sample_endpoint)) =
      Some sample_response.
Proof.
  eexists. split; [run_trace|]. split; [reflexivity|].
  edestruct (managed_response_roundtrip sample_rpc (sample_runtime true) sample_token 0 (Some sample_response)
    6 [ Event (Wl_rpc_server_response_prepare (tk_request sample_token)) (WL_RPC_OK, 226);
        Event (Wl_rpc_server_response_commit (tk_request sample_token) 0 sample_response_bytes 6)
          (WL_RPC_OK, sample_cached) ]) as (capacity & cached & data & Hl & _ & Harrive & Hvalue).
  - exact sample_is_managed.
  - unfold in_s. cbn. lia.
  - intros _. exists sample_response. split; [reflexivity|exact sample_response_normal].
  - unfold identity_ok, in_u. cbn. lia.
  - run_trace.
  - reflexivity.
  - apply (f_equal committed_data) in Hl. cbn [committed_data] in Hl. subst data. split.
    + destruct (response_trace_runs (fun _ => 1) (fun _ => 1)) as (r' & rt' & Hrun & _).
      destruct (Harrive (fun _ => 1) (fun _ => 1) response_event (sample_runtime false) 6 response_trace
        r' rt' (sample_client WL_RPC_CLIENT_WAIT_RESPONSE None)) as (ans & Hin & _);
        [reflexivity|reflexivity|reflexivity|reflexivity|by eexists|exact Hrun| | |reflexivity|reflexivity|].
      * intros s Hin. unfold response_trace in Hin. cbn [In] in Hin.
        repeat (destruct Hin as [Hin|Hin]; [try discriminate Hin; by apply (f_equal session_answer) in Hin|]). done.
      * intros got Hin. unfold response_trace in Hin. cbn [In] in Hin.
        repeat (destruct Hin as [Hin|Hin]; [try discriminate Hin; by apply (f_equal get_answer) in Hin|]). done.
      * by exists ans.
    + apply Hvalue; reflexivity.
Defined.

Lemma managed_request_roundtrip_witness :
  managed_encode_submission sample_rpc sample_request 5 99 226 = Ok sample_request_bytes /\
  fci_device_rpc_header_read 1 sample_request_bytes = Ok (submission_header 5 99) /\
  value_decode (rpc_request sample_rpc) (drop 20 sample_request_bytes) = Ok sample_request.
Proof.
  split; [vm_compute; reflexivity|].
  destruct (managed_request_roundtrip sample_rpc sample_is_managed) as [Hsubmit _].
  refine (proj2 (Hsubmit sample_request 5 99 226 sample_request_bytes _ _ _ _ _)).
  - vm_compute. tauto.
  - unfold in_u. lia.
  - lia.
  - unfold in_u. lia.
  - vm_compute. reflexivity.
Defined.
