(* ===== verification/DispatchProps.v ===== *)
(** * What a dispatch may do

    Statements about every run of [fci_device_runtime_dispatch_event], whatever
    the library answers: what is delivered is what the event carries, to the one
    call or cell that it names; and the event and the claims are settled once. *)

From Stdlib Require Import String.
From S2P Require Import Prelude WlcWire WlcSchema WlcCodec FciMessages DeviceTypes Endpoint EndpointOps FciRpc Prog RuntimeCalls ManagedRpc RuntimeDispatch RuntimeSamples.

(** ** The switch *)

Lemma case_of_response id c :
  case_of id = CResponse c -> In c managed_rpcs /\ rpc_response_id c = id.
Proof.
  unfold case_of. repeat (case_match; try done). intros [= ->].
  apply List.find_some in H4 as [? ?%Z.eqb_eq]. done.
Qed.

Lemma case_of_legacy id c :
  case_of id = CLegacyResponse c -> In c legacy_rpcs /\ rpc_response_id c = id.
Proof.
  unfold case_of. repeat (case_match; try done). intros [= ->].
  apply List.find_some in H5 as [? ?%Z.eqb_eq]. done.
Qed.

Lemma case_of_retained id k : case_of id = CRetained k -> id = latest_message_id k.
Proof.
  unfold case_of. repeat (case_match; try done); intros [= <-]; apply Z.eqb_eq in H || apply Z.eqb_eq in H0 ||
    apply Z.eqb_eq in H1; done.
Qed.

(** ** Deliveries *)

Section deliveries.
Variable sizeof alignof : latest -> Z.
Variable e : wl_event_t.

(** A response of version 2: its header names the session of the link, and a
    call of this RPC that the library says is pending; a body, if it has one, is
    a response of the RPC. *)
Definition answers_call (h : list (event rt_call)) (resp operation_id status : Z) : Prop :=
  exists c hd client,
    In c managed_rpcs /\ rpc_response_id c = resp /\
    fci_device_rpc_header_read 2 (ev_payload e) = Ok hd /\
    h_operation_id hd = operation_id /\ h_status hd = status /\
    In (Event Wl_link_session_id (h_session hd)) h /\
    In (Event (Wl_rpc_client_get operation_id) (Ok client)) h /\
    is_call_of c client = true /\ rpc_pending (rc_state client) = true /\
    (status <> 0 -> length (ev_payload e) = 20%nat) /\
    (status = 0 -> exists old,
       fst (wlc_decode (rpc_response c) (drop 20 (ev_payload e)) old) = WL_CODEC_OK).

(** A response of version 1: its body names the call and the status. *)
Definition answers_legacy (resp operation_id status : Z) : Prop :=
  exists c old response,
    In c legacy_rpcs /\ rpc_response_id c = resp /\
    wlc_decode (rpc_response c) (ev_payload e) old = (WL_CODEC_OK, response) /\
    wire_int (rpc_response c) "operation_id" response = (true, operation_id) /\ operation_id <> 0 /\
    wire_int (rpc_response c) "status" response = (true, status).

Definition delivery_ok (h : list (event rt_call)) (ev : event rt_call) : Prop :=
  match ev with
  | Event c _ =>
      match c with
      | Wl_rpc_client_on_response resp operation_id status data =>
          ev_type e = WL_EVT_RELIABLE_RX /\ ev_message_id e = resp /\ data = ev_payload e /\
          (answers_call h resp operation_id status \/ answers_legacy resp operation_id status)
      | Wl_latest_write_publish k value =>
          ev_type e = WL_EVT_UNRELIABLE_RX /\ ev_message_id e = latest_message_id k /\
          wlc_decode (latest_desc k) (ev_payload e) [] = (WL_CODEC_OK, value) /\
          exists span, In (Event (Wl_latest_write_claim k) (WL_OK, span)) h /\
            sizeof k <= cs_size span /\ cs_address span mod alignof k = 0
      | Bulk_status_handler m =>
          ev_type e = WL_EVT_UNRELIABLE_RX /\ ev_message_id e = 28708 /\
          exists old, wlc_decode bulk_status_desc (ev_payload e) old = (WL_CODEC_OK, m)
      | Wl_event_release e' => e' = e /\ is_rx e = true
      | _ => True
      end
  end.

Abbreviation safe_deliveries h p := (safe delivery_ok h p (fun _ _ => True)).

Ltac facts :=
  repeat match goal with
  | H : negb (bool_decide _) = false |- _ => apply negb_false_iff, bool_decide_eq_true in H
  | H : negb (_ =? _) = false |- _ => apply negb_false_iff, Z.eqb_eq in H
  | H : negb _ = false |- _ => apply negb_false_iff in H
  | H : (_ <? _) = false |- _ => apply Z.ltb_ge in H
  end.

Lemma retained_safe k rt :
  case_of (ev_message_id e) = CRetained k ->
  safe_deliveries [] (retained_case sizeof alignof k e rt).
Proof.
  intros Hk%case_of_retained. unfold retained_case. walk_safe; try done.
  facts. subst. cbn. split; [done|]. split; [done|]. split; [done|].
  eexists. split; [by left|done].
Qed.

Lemma bulk_safe rt :
  ev_message_id e = 28708 -> safe_deliveries [] (bulk_status_case e rt).
Proof. intros Hid. unfold bulk_status_case. walk_safe; try done. facts. subst. cbn. eauto. Qed.

Lemma response_delivered c hd client h r :
  In c managed_rpcs -> rpc_response_id c = ev_message_id e -> ev_type e = WL_EVT_RELIABLE_RX ->
  fci_device_rpc_header_read 2 (ev_payload e) = Ok hd ->
  In (Event Wl_link_session_id (h_session hd)) h ->
  In (Event (Wl_rpc_client_get (h_operation_id hd)) (Ok client)) h ->
  is_call_of c client = true -> rpc_pending (rc_state client) = true ->
  (h_status hd <> 0 -> length (ev_payload e) = 20%nat) ->
  (h_status hd = 0 -> exists old,
     fst (wlc_decode (rpc_response c) (drop 20 (ev_payload e)) old) = WL_CODEC_OK) ->
  delivery_ok h (Event (Wl_rpc_client_on_response (rpc_response_id c) (h_operation_id hd) (h_status hd)
    (ev_payload e)) r).
Proof. intros. cbn. split; [done|]. split; [done|]. split; [done|]. left. by exists c, hd, client. Qed.

Lemma response_safe c rt now :
  case_of (ev_message_id e) = CResponse c -> safe_deliveries [] (response_case c e rt now).
Proof.
  intros [Hc Hid]%case_of_response. unfold response_case. walk_safe; try done; facts; subst.
  all: eapply response_delivered; try done; try (cbn; tauto).
  all: destruct (Z.eqb_spec (h_status a) 0) as [H0|H0]; try done.
  all: try (intros _; cbn in *; facts; by apply Nat.eqb_eq).
  all: intros _; eexists; match goal with H : wlc_decode _ _ _ = _ |- _ => rewrite H end; done.
Qed.

Lemma legacy_safe c rt :
  case_of (ev_message_id e) = CLegacyResponse c -> safe_deliveries [] (legacy_response_case c e rt).
Proof.
  intros [Hc Hid]%case_of_legacy. unfold legacy_response_case. walk_safe; try done; facts; subst.
  cbn. split; [done|]. split; [done|]. split; [done|]. right.
  match goal with H : _ || _ || _ = false |- _ => rewrite !orb_false_iff in H; destruct H as [[??] ?] end.
  facts. subst. do 3 eexists. repeat split; try done. by apply Z.eqb_neq.
Qed.

Lemma dispatch_case_safe rt now : safe_deliveries [] (dispatch_case sizeof alignof e rt now).
Proof.
  unfold dispatch_case. destruct (case_of (ev_message_id e)) eqn:Hcase.
  - eapply safe_bind; [by apply retained_safe|]. intros. done.
  - apply bulk_safe. unfold case_of in Hcase. repeat (case_match; try done). by apply Z.eqb_eq.
  - done.
  - by apply response_safe.
  - by apply legacy_safe.
  - done.
Qed.

Lemma dispatch_tx_safe rt : safe_deliveries [] (dispatch_tx e rt).
Proof. unfold dispatch_tx. walk_safe; done. Qed.

End deliveries.

(** A dispatch delivers nothing but the event, and only to what it names.
    Whatever the library answers, a response is handed to it only for a
    reliable message whose id is the RPC's response, whole, and either its
    header names the session of the link and a call that the library has just
    said is a pending call of this very RPC (so a late, misdirected or foreign
    response touches no call), or it is a well-formed response of version 1; a
    retained message is published only in the cell of its id, decoded, through a
    claim large and aligned enough for it; the application is given only what
    decodes; and only this event is released. *)
Theorem dispatch_delivers sizeof alignof e rt now l r rt' :
  runs (fci_device_runtime_dispatch_event sizeof alignof e rt now) l (r, rt') ->
  forall l1 ev l2, l = l1 ++ ev :: l2 -> delivery_ok sizeof alignof e l1 ev.
Proof.
  assert (safe (delivery_ok sizeof alignof e) []
    (fci_device_runtime_dispatch_event sizeof alignof e rt now) (fun _ _ => True)) as Hs.
  { unfold fci_device_runtime_dispatch_event.
    destruct (is_tx_end e); [eapply safe_bind; [apply dispatch_tx_safe|done]|].
    destruct (is_rx e) eqn:Hrx; [|done]. cbn [negb].
    eapply safe_bind; [apply dispatch_case_safe|]. intros h [[domain detail] rt2] _.
    walk_safe; done. }
  intros Hr. exact (proj1 (safe_runs _ _ _ _ _ _ Hs Hr)).
Qed.

(** ** What is settled *)

(** The event is released, or its finished transmission taken. *)
Definition consumes (ev : event rt_call) : bool :=
  match ev with
  | @Event _ R c a =>
      match c in rt_call R return R -> bool with
      | Wl_event_release _ => fun _ => true
      | Wl_tx_take _ => fun r => bool_decide (r = WL_OK)
      | _ => fun _ => false
      end a
  end.

(** A claim of a cell that is granted, and its two ends. *)
Definition claims (ev : event rt_call) : bool :=
  match ev with
  | @Event _ R c a =>
      match c in rt_call R return R -> bool with
      | Wl_latest_write_claim _ => fun r => bool_decide (fst r = WL_OK)
      | _ => fun _ => false
      end a
  end.
Definition ends_claim (ev : event rt_call) : bool :=
  match ev with
  | @Event _ R c a =>
      match c in rt_call R return R -> bool with
      | Wl_latest_write_abort _ => fun _ => true
      | Wl_latest_write_publish _ _ => fun r => bool_decide (r = WL_OK)
      | _ => fun _ => false
      end a
  end.

(** What the calls of a run amount to: consumed, claimed, ended. *)
Definition tally (h : list (event rt_call)) (consumed claimed : nat) : Prop :=
  count_calls consumes h = consumed /\ count_calls claims h = claimed /\
  count_calls ends_claim h = claimed.

Ltac tallies :=
  unfold tally; cbn; repeat case_bool_decide; try done; try congruence;
  repeat match goal with H : negb (bool_decide _) = _ |- _ =>
    first [apply negb_false_iff, bool_decide_eq_true in H | apply negb_true_iff, bool_decide_eq_false in H]
  end; try congruence; try done.

Section settled.
Variable sizeof alignof : latest -> Z.

Lemma dispatch_case_tally e rt now :
  safe any [] (dispatch_case sizeof alignof e rt now) (fun h _ => exists n, tally h 0 n).
Proof.
  unfold dispatch_case. destruct (case_of (ev_message_id e)).
  - unfold retained_case. walk_safe; try done; first [by exists 0%nat; tallies|by exists 1%nat; tallies].
  - unfold bulk_status_case. walk_safe; try done; by exists 0%nat.
  - by exists 0%nat.
  - unfold response_case. walk_safe; try done; by exists 0%nat.
  - unfold legacy_response_case. walk_safe; try done; by exists 0%nat.
  - by exists 0%nat.
Qed.

Lemma dispatch_tx_tally e rt :
  safe any [] (dispatch_tx e rt) (fun h r => tally h (if r_event_consumed r then 1 else 0) 0).
Proof. unfold dispatch_tx. walk_safe; try done; tallies. Qed.
End settled.

Lemma tally_app h ev consumed claimed :
  tally h consumed claimed -> claims ev = false -> ends_claim ev = false ->
  tally (h ++ [ev]) (consumed + if consumes ev then 1 else 0) claimed.
Proof. unfold tally. rewrite !count_calls_app. cbn. intros (-> & -> & ->) -> ->. split; lia. Qed.

(** C22: The event and every claim are settled exactly once.  On every run of a
    dispatch, the event is consumed (released when it carries a message, its
    transmission taken when it ends one) exactly once when the result says
    that it is consumed, and not at all when it does not; a message is always
    consumed, by releasing it last; and every claim of a cell that was granted
    has been either published or aborted. *)
Theorem dispatch_settles sizeof alignof e rt now l r rt' :
  runs (fci_device_runtime_dispatch_event sizeof alignof e rt now) l (r, rt') ->
  count_calls consumes l = (if r_event_consumed r then 1 else 0)%nat /\
  count_calls ends_claim l = count_calls claims l /\
  (is_rx e = true -> r_event_consumed r = true /\ exists l1, l = l1 ++ [Event (Wl_event_release e) tt]).
Proof.
  assert (safe any [] (fci_device_runtime_dispatch_event sizeof alignof e rt now)
    (fun h a => (exists n, tally h (if r_event_consumed (fst a) then 1 else 0) n) /\
      (is_rx e = true -> r_event_consumed (fst a) = true /\ exists l1, h = l1 ++ [Event (Wl_event_release e) tt])))
    as Hs.
  { unfold fci_device_runtime_dispatch_event. destruct (is_tx_end e) eqn:Htx.
    - eapply safe_bind; [apply dispatch_tx_tally|]. intros h r0 Ht. apply safe_ret.
      split; [by exists 0%nat|]. unfold is_rx, is_tx_end in *. by destruct (ev_type e).
    - destruct (is_rx e) eqn:Hrx; cbn [negb]; [|apply safe_ret; split; [by exists 0%nat|done]].
      eapply safe_bind; [apply dispatch_case_tally|]. intros h [[domain detail] rt2] [n Ht].
      apply safe_call; [done|]. intros []. apply safe_ret. split.
      + exists n. by apply (tally_app h (Event (Wl_event_release e) tt) 0 n).
      + intros _. split; [done|]. by exists h. }
  intros Hr. destruct (safe_runs _ _ _ _ _ _ Hs Hr) as [_ [[n (H1 & H2 & H3)] Hrx]]. cbn in *.
  split; [done|]. split; [congruence|done].
Qed.

(** ** A sample event *)

(** Of the sample response, the library is handed just what its header names. *)
Lemma dispatch_delivers_witness :
  exists sizeof alignof,
    delivery_ok sizeof alignof response_event (take 3 response_trace)
      (Event (Wl_rpc_client_on_response 25118 5 0 sample_response_bytes) WL_RPC_OK).
Proof.
  exists (fun _ => 1), (fun _ => 1).
  destruct (response_trace_runs (fun _ => 1) (fun _ => 1)) as (r & rt & Hrun & _).
  exact (dispatch_delivers (fun _ => 1) (fun _ => 1) response_event (sample_runtime false) 6 response_trace r rt Hrun
    (take 3 response_trace) (Event (Wl_rpc_client_on_response 25118 5 0 sample_response_bytes) WL_RPC_OK)
    [Event (Wl_event_release response_event) tt] eq_refl).
Defined.

Definition status_event : wl_event_t := sample_event WL_EVT_UNRELIABLE_RX 24577 [255].

(** A retained message that does not decode: its claim is given back. *)
Lemma dispatch_settles_witness :
  let l := [ Event (Wl_latest_write_claim ArmStatusLatest) (WL_OK, {| cs_address := 64; cs_size := 128 |});
             Event (Wl_latest_write_abort ArmStatusLatest) WL_OK;
             Event (Wl_event_release status_event) tt ] in
  count_calls consumes l = 1%nat /\ count_calls ends_claim l = 1%nat /\
  count_calls ends_claim l = count_calls claims l.
Proof.
  intros l. split; [reflexivity|]. split; [reflexivity|].
  assert (exists r rt, runs (fci_device_runtime_dispatch_event (fun _ => 8) (fun _ => 8) status_event
    (sample_runtime false) 6) l (r, rt)) as (r & rt & Hrun) by (eexists _, _; run_trace).
  exact (proj1 (proj2 (dispatch_settles (fun _ => 8) (fun _ => 8) status_event (sample_runtime false) 6 l r rt Hrun))).
Defined.
