(* ===== verification/RuntimeProps.v ===== *)
(** * Servicing, completing and calling

    Statements about every run of the endpoint's own functions: responses and
    completions are settled once, no failure of a pass is lost, a synchronous
    call leaves nothing behind, and a handle of another incarnation reaches no
    call. *)

From Stdlib Require Import String.
From S2P Require Import Prelude WlcWire WlcSchema WlcCodec WlcValue FciMessages DeviceTypes Endpoint EndpointOps FciRpc Prog RuntimeCalls ManagedRpc RuntimeService RuntimeDispatch RpcEndpoint DispatchProps RuntimeSamples.

(** ** Responses *)

Definition acquires_response (ev : event rt_call) : bool :=
  match ev with
  | @Event _ R c a =>
      match c in rt_call R return R -> bool with
      | Wl_rpc_server_response_acquire => fun r => match r with Ok _ => true | Err _ => false end
      | _ => fun _ => false
      end a
  end.
Definition settles_response (ev : event rt_call) : bool :=
  match ev with
  | @Event _ R c a =>
      match c in rt_call R return R -> bool with
      | Wl_rpc_server_response_submitted _ _ => fun r => bool_decide (r = WL_RPC_OK)
      | Wl_rpc_server_response_defer _ => fun _ => true
      | _ => fun _ => false
      end a
  end.

Definition neutral (ev : event rt_call) : Prop :=
  acquires_response ev = false /\ settles_response ev = false.

Lemma neutral_counts l :
  Forall neutral l -> count_calls acquires_response l = 0%nat /\ count_calls settles_response l = 0%nat.
Proof.
  intros Hl. split; apply count_calls_none; eapply List.Forall_impl; try exact Hl; by intros ev [].
Qed.

Lemma poll_neutral rt now : only neutral (fci_device_runtime_poll rt now).
Proof. unfold fci_device_runtime_poll. solve_only. Qed.
#[local] Hint Resolve poll_neutral : only.

(** What [service_response] has done to the response it was given. *)
Lemma service_response_settles now out response h :
  count_calls acquires_response h = 1%nat -> count_calls settles_response h = 0%nat ->
  sv_submitted out = 0 ->
  safe any h (service_response now out response) (fun h '(result, out) =>
    count_calls settles_response h = 1%nat /\ count_calls acquires_response h = 1%nat /\
    (sv_submitted out = 1 -> result = WL_RPC_OK /\ r_domain (sv_response out) = FCI_DEVICE_RUNTIME_OK)).
Proof.
  intros Ha Hs Ho. unfold service_response. walk_safe; try done; cbn;
    rewrite !count_calls_app, Ha, Hs; cbn; repeat case_bool_decide; done.
Qed.

(** A pass that has ended without a response. *)
Ltac nothing Hr :=
  destruct Hr as [-> Hr]; injection Hr as <- <- <-; cbn; repeat split; intros; (lia || done).

(** A response is settled once.  On every run of a service pass, a response
    acquired from the library's cache is either submitted, with the transmission
    that carries it, or given back to be tried again, and never both; at most
    one is acquired; and the pass says that it submitted one only when it did. *)
Theorem service_settles rt now l result out rt' :
  runs (fci_device_runtime_service rt now) l (result, out, rt') ->
  count_calls settles_response l = count_calls acquires_response l /\
  (count_calls acquires_response l <= 1)%nat /\
  (sv_submitted out = 1 -> result = WL_RPC_OK /\ count_calls acquires_response l = 1%nat /\
     r_domain (sv_response out) = FCI_DEVICE_RUNTIME_OK).
Proof.
  intros Hr. unfold fci_device_runtime_service in Hr.
  apply runs_bind in Hr as (l1 & l2 & rt1 & -> & Hretire & Hr).
  apply runs_bind in Hr as (l3 & l4 & [polled deadlines] & -> & Hpoll & Hr).
  assert (Forall neutral (l1 ++ l3)) as [Ha Hs]%neutral_counts.
  { apply Forall_app. split; [|by eapply only_runs; [apply poll_neutral|]].
    eapply only_runs; [|exact Hretire]. solve_only. }
  rewrite app_assoc, !count_calls_app, <- !count_calls_app, !(count_calls_app _ (l1 ++ l3)), Ha, Hs.
  case_bool_decide as Hp; cbn [negb] in Hr; [|nothing Hr].
  destruct (rn_server rt1); cbn [negb] in Hr; [|nothing Hr].
  step_call Hr acquired. destruct acquired as [response|err].
  - apply runs_bind in Hr as (l5 & l6 & [result' out'] & -> & Hr & [-> [= <- <- <-]]%runs_ret).
    set (ev := Event Wl_rpc_server_response_acquire (Ok response)) in *.
    pose proof (service_response_settles now
      {| sv_deadlines := deadlines; sv_response := fci_device_runtime_result None;
         sv_submitted := 0; sv_deferred := 0 |} response [ev] eq_refl eq_refl eq_refl) as Hsafe.
    destruct (safe_runs _ _ _ _ _ _ Hsafe Hr) as [_ (H1 & H2 & H3)].
    rewrite app_nil_r. cbn [app] in H1, H2. rewrite H1, H2. split; [done|]. split; [done|].
    intros [??]%H3. done.
  - by destruct err; nothing Hr.
Qed.

(** ** Completions *)

Section completions.
Variable async : wl_rpc_client_result_t -> rpc_completion.

(** A completion as the endpoint prepares it: a response goes with success, and
    only with success; it is what the retained message holds. *)
Definition completion_ok (c : rpc) (client : wl_rpc_client_result_t) (completion : rpc_completion)
    (response : option wstruct) : Prop :=
  (is_Some response <-> cp_status completion = WL_RPC_SUCCESS) /\
  (cp_status completion = WL_RPC_SUCCESS -> cp_status (async client) = WL_RPC_SUCCESS) /\
  (cp_status completion <> WL_RPC_SUCCESS -> cp_status (async client) <> WL_RPC_SUCCESS ->
     completion = async client) /\
  forall v, response = Some v ->
    (20 <= length (response_bytes client))%nat /\
    value_decode (rpc_response c) (drop 20 (response_bytes client)) = Ok v.

Definition offered (e : fci_device_endpoint_t) : option wstruct :=
  if decide (cp_status (en_completion e) = WL_RPC_SUCCESS) then Some (en_value e) else None.

Lemma prepare_ok c client e :
  completion_ok c client (en_completion (endpoint_prepare async c client e))
    (offered (endpoint_prepare async c client e)).
Proof.
  unfold completion_ok, offered, endpoint_prepare.
  destruct (decide (cp_status (async client) = WL_RPC_SUCCESS)) as [Hs|Hs].
  - destruct (Nat.ltb_spec (length (response_bytes client)) 20); cbn.
    + split; [by split; [intros [? ?]|]|]. done.
    + destruct (value_decode _ _) as [v|s] eqn:Hv; cbn; [|by split; [split; [intros [? ?]|]|]].
      split; [by split|]. split; [done|]. split; [done|]. by intros v' [= <-].
  - cbn. rewrite decide_False by done. split; [by split; [intros [? ?]|]|]. done.
Qed.

Lemma prepare_frames c client e : en_frames (endpoint_prepare async c client e) = en_frames e.
Proof. unfold endpoint_prepare. repeat case_match; done. Qed.

(** The application's callbacks of a list of completions. *)
Definition application_callback (ev : event rt_call) : bool :=
  match ev with
  | Event c _ => match c with Completion_callback _ _ _ _ => true | _ => false end
  end.
Definition to_application (x : rpc_observer * wl_rpc_client_result_t) : bool :=
  match ob_callback (fst x) with CbApplication _ _ => true | CbSync _ => false end.

(** A call of the application is one of the completions, and is told what the
    endpoint prepared for it. *)
Definition callback_ok (l : list (rpc_observer * wl_rpc_client_result_t)) (ev : event rt_call) : Prop :=
  match ev with
  | Event c _ =>
      match c with
      | Completion_callback f user_data completion response =>
          exists observer client, In (observer, client) l /\
            ob_callback observer = CbApplication f user_data /\
            completion_ok (ob_rpc observer) client completion response
      | Sync_notify _ _ => True
      | _ => False
      end
  end.

Lemma callback_ok_cons x l ev : callback_ok l ev -> callback_ok (x :: l) ev.
Proof.
  destruct ev as [R c r]. cbn. destruct c; try done.
  intros (o & client & Hin & Hrest). exists o, client. split; [by right|done].
Qed.

Lemma run_completions_ok l e h :
  safe any h (run_completions async l e) (fun h' _ => exists h2, h' = h ++ h2 /\
    Forall (callback_ok l) h2 /\
    count_calls application_callback h2 = length (List.filter to_application l)).
Proof.
  revert e h. induction l as [|[observer client] l IH]; intros e h.
  { exists []. by rewrite app_nil_r. }
  cbn [run_completions]. set (e1 := endpoint_prepare async (ob_rpc observer) client e).
  assert (safe any h (endpoint_notify (ob_callback observer) e1) (fun h' _ => exists h2, h' = h ++ h2 /\
    Forall (callback_ok ((observer, client) :: l)) h2 /\
    count_calls application_callback h2 = (if to_application (observer, client) then 1 else 0)%nat)) as Hn.
  { unfold endpoint_notify, to_application. cbn [fst].
    destruct (ob_callback observer) as [f u|frame] eqn:Hcb.
    - apply safe_call; [done|]. intros r. apply safe_ret. eexists. split; [done|]. split; [|done].
      constructor; [|constructor]. cbn. exists observer, client. split; [by left|]. split; [done|].
      apply prepare_ok.
    - unfold sync_done. walk_safe; try done.
      + eexists. split; [done|]. split; [|done]. by constructor; [|constructor].
      + exists []. by rewrite app_nil_r.
      + exists []. by rewrite app_nil_r. }
  eapply safe_bind; [exact Hn|]. intros h' e2 (h2 & -> & Hf & Hc).
  eapply safe_mono; [apply IH|]. intros h'' _ (h3 & -> & Hf3 & Hc3).
  exists (h2 ++ h3). split; [by rewrite app_assoc|]. split.
  - apply Forall_app. split; [done|]. eapply List.Forall_impl; [|exact Hf3]. intros ev. apply callback_ok_cons.
  - rewrite count_calls_app, Hc, Hc3. cbn [List.filter].
    destruct (to_application (observer, client)); done.
Qed.

(** An application is called back once for each of its calls that the library
    ends, in no other way, and is given a response exactly when the call
    succeeded: the value that the retained message holds after its header.  A
    message too short for a header, or that does not decode, is a failure. *)
Theorem completions_called_once l e h e' :
  runs (run_completions async l e) h e' ->
  count_calls application_callback h = length (List.filter to_application l) /\
  forall ev, In ev h -> callback_ok l ev.
Proof.
  intros Hr. destruct (safe_runs _ _ _ _ _ _ (run_completions_ok l e []) Hr) as [_ (h2 & Hh & Hf & Hc)].
  cbn in Hh. subst h2. split; [done|]. by rewrite List.Forall_forall in Hf.
Qed.
End completions.

(** ** A pass reports its failures *)

(** The results that are shown to the application. *)
Definition reported (ev : event rt_call) : option runtime_result :=
  match ev with
  | Event c _ => match c with On_result r => Some r | _ => None end
  end.
Definition quiet (ev : event rt_call) : Prop := reported ev = None.

(** The first failure that a history shows. *)
Fixpoint first_failure (h : list (event rt_call)) : option runtime_result :=
  match h with
  | [] => None
  | ev :: h =>
      match reported ev with
      | Some r => if result_ok r then first_failure h else Some r
      | None => first_failure h
      end
  end.

Lemma first_failure_app h1 h2 :
  first_failure (h1 ++ h2) =
  match first_failure h1 with Some r => Some r | None => first_failure h2 end.
Proof. induction h1 as [|ev h1 IH]; [done|]. cbn. destruct (reported ev) as [r|]; [by destruct (result_ok r)|done]. Qed.

Lemma quiet_failure l : Forall quiet l -> first_failure l = None.
Proof. induction 1 as [|ev l Hq _ IH]; [done|]. cbn. by rewrite Hq. Qed.

(** The endpoint's result is the first failure of the history, if it has one. *)
Definition keeps (h : list (event rt_call)) (e : fci_device_endpoint_t) : Prop :=
  en_on_result e = true /\
  match first_failure h with
  | Some r => en_result e = r
  | None => result_ok (en_result e) = true
  end.

Lemma first_failure_not_ok h r : first_failure h = Some r -> result_ok r = false.
Proof.
  induction h as [|ev h IH]; [done|]. cbn. destruct (reported ev) as [r'|]; [|done].
  destruct (result_ok r') eqn:Hok; [done|]. by intros [= <-].
Qed.

Section passes.
Variable async : wl_rpc_client_result_t -> rpc_completion.
Variable sizeof alignof : latest -> Z.

(** A change of the endpoint that keeps its result. *)
Definition same_result (e e' : fci_device_endpoint_t) : Prop :=
  en_result e' = en_result e /\ en_on_result e' = en_on_result e.

Lemma keeps_same h e e' : same_result e e' -> keeps h e -> keeps h e'.
Proof. intros [Hr Ho]. unfold keeps. by rewrite Hr, Ho. Qed.

Lemma keeps_quiet h l e : Forall quiet l -> keeps h e -> keeps (h ++ l) e.
Proof. intros Hl%quiet_failure. unfold keeps. rewrite first_failure_app, Hl. by destruct (first_failure h). Qed.

Lemma keep_result_keeps h r e :
  keeps h e -> safe any h (keep_result r e) keeps.
Proof.
  intros [Ho Hk]. unfold keep_result. destruct (reply_pressure r); [by apply safe_ret|].
  replace (en_on_result (if result_ok (en_result e) then set_result e r else e)) with true
    by (by destruct (result_ok _)).
  apply safe_call; [done|]. intros []. apply safe_ret. unfold keeps.
  rewrite first_failure_app. cbn [first_failure reported].
  destruct (first_failure h) as [r0|] eqn:Hf.
  - rewrite Hk, (first_failure_not_ok _ _ Hf). done.
  - rewrite Hk. cbn. by destruct (result_ok r) eqn:Hr.
Qed.

Lemma record_keeps h r e : keeps h e -> safe any h (fci_device_endpoint_record r e) keeps.
Proof.
  intros Hk. unfold fci_device_endpoint_record.
  destruct (decide _); [destruct (r_event_type r)|]; try (by apply safe_ret); by apply keep_result_keeps.
Qed.

Lemma dispatch_quiet event rt now : only quiet (fci_device_runtime_dispatch_event sizeof alignof event rt now).
Proof.
  unfold fci_device_runtime_dispatch_event, dispatch_tx, dispatch_case.
  destruct (is_tx_end event); [solve_only|]. destruct (is_rx event); [|done]. cbn [negb].
  apply only_bind; [|intros [[??]?]; solve_only].
  destruct (case_of (ev_message_id event)) as [k| | |c|c|];
    unfold retained_case, bulk_status_case, response_case, legacy_response_case; solve_only.
Qed.

Lemma service_quiet rt now : only quiet (fci_device_runtime_service rt now).
Proof.
  unfold fci_device_runtime_service, fci_device_runtime_poll, service_response. solve_only.
Qed.

Lemma completions_keep l e h : keeps h e -> safe any h (run_completions async l e) keeps.
Proof.
  revert e h. induction l as [|[observer client] l IH]; intros e h Hk; [by apply safe_ret|].
  cbn [run_completions]. set (e1 := endpoint_prepare async (ob_rpc observer) client e).
  assert (keeps h e1) as Hk1.
  { apply (keeps_same h e); [|done]. unfold e1, endpoint_prepare. repeat case_match; done. }
  eapply safe_bind; [|intros h' e2; apply IH].
  unfold endpoint_notify, sync_done. walk_safe; try done;
    try (apply (keeps_quiet h [_]); [by constructor|]); by apply (keeps_same h e1).
Qed.

Lemma quiet_bind {A B} (p : rtp A) (f : A -> rtp B) e h post :
  only quiet p -> keeps h e -> (forall a h', keeps h' e -> safe any h' (f a) post) ->
  safe any h (p ≫= f) post.
Proof.
  intros Hp Hk Hf. eapply (safe_bind _ _ _ _ (fun h' _ => keeps h' e)); [|by intros h' a; apply Hf].
  apply (safe_only quiet); [done|done|]. intros l a Hl. by apply keeps_quiet.
Qed.

Lemma event_keeps event now e h :
  keeps h e -> safe any h (pump_event sizeof alignof event now e) (fun h' x => keeps h' (snd x)).
Proof.
  intros Hk. unfold pump_event. eapply (quiet_bind _ _ e); [apply dispatch_quiet|done|].
  intros [r rt] h' Hk'. eapply safe_bind; [apply record_keeps; by apply (keeps_same h' e)|].
  intros h'' e' Hk''. by apply safe_ret.
Qed.

Lemma progress_keeps now e h :
  keeps h e -> safe any h (pump_progress async now e) (fun h' x => keeps h' (snd x)).
Proof.
  intros Hk. unfold pump_progress. eapply (quiet_bind _ _ e); [apply service_quiet|done|].
  intros [[last service] rt] h' Hk'. set (e1 := set_service (set_runtime e rt) last service).
  assert (keeps h' e1) as Hk1 by (by apply (keeps_same h' e)).
  eapply (safe_bind _ _ _ _ keeps).
  - repeat case_match; try (by apply safe_ret). by apply record_keeps.
  - intros h'' e2 Hk2. destruct (rn_async (en_runtime e2)); [|by apply safe_ret].
    apply safe_call; [done|]. intros [[serviced notified] completions].
    eapply safe_bind; [apply completions_keep; apply (keeps_quiet h'' [_]); [by constructor|done]|].
    intros h3 e3 Hk3. apply safe_ret. cbn. by destruct (decide _).
Qed.

Lemma hooks_keep hooks e h : keeps h e -> safe any h (run_hooks async sizeof alignof hooks e) keeps.
Proof.
  revert e h. induction hooks as [|[event now|now] hooks IH]; intros e h Hk; [by apply safe_ret| |];
    cbn [run_hooks].
  - eapply safe_bind; [by apply event_keeps|]. intros h' [b e2]. apply IH.
  - eapply safe_bind; [by apply progress_keeps|]. intros h' [b e2]. apply IH.
Qed.

Lemma step_keeps e :
  en_on_result e = true ->
  safe any [] (fci_device_endpoint_step async sizeof alignof e) (fun h '(answer, e') =>
    answer = WL_ERR_REENTRANT /\ h = [] /\ e' = e \/
    match first_failure h with
    | Some r => answer <> WL_OK /\ en_result e' = r
    | None => answer = WL_OK -> result_ok (en_result e') = true
    end).
Proof.
  intros Ho. unfold fci_device_endpoint_step.
  destruct (en_stepping e || en_closing e); [apply safe_ret; by left|].
  apply safe_call; [done|]. intros [stepped hooks].
  eapply safe_bind; [by apply hooks_keep|]. intros h e' [_ Hk].
  destruct (bool_decide (stepped = WL_OK)) eqn:Hs; cbn [negb].
  2: { apply bool_decide_eq_false in Hs. apply safe_ret. right. destruct (first_failure h); [done|]. done. }
  destruct (bool_decide (en_last_service_result (set_stepping e' false) = WL_RPC_OK)); cbn [negb];
    apply safe_ret; right; cbn [en_result set_stepping en_set];
    destruct (first_failure h) as [r|] eqn:Hf; try done.
  - rewrite Hk, (first_failure_not_ok _ _ Hf). done.
  - rewrite Hk, (first_failure_not_ok _ _ Hf). done.
Qed.

(** C31: A pass loses no failure.  When the application listens, the first failure
    that a pass of the owner has shown it is what the endpoint keeps as the
    result of the pass, whatever succeeded after it, and the pass returns an
    error; a pass that returns success has shown none. *)
Theorem step_keeps_first_failure e l answer e' :
  en_on_result e = true ->
  runs (fci_device_endpoint_step async sizeof alignof e) l (answer, e') ->
  (forall r, first_failure l = Some r -> answer <> WL_OK /\ en_result e' = r) /\
  (answer = WL_OK -> (forall r, In (Event (On_result r) tt) l -> result_ok r = true) /\
     result_ok (en_result e') = true).
Proof.
  intros Ho Hr. destruct (safe_runs _ _ _ _ _ _ (step_keeps e Ho) Hr) as [_ Hpost]. cbn in Hpost.
  assert (forall r, In (Event (On_result r) tt) l -> first_failure l = None -> result_ok r = true) as Hin.
  { clear. intros r. induction l as [|ev l IH]; [done|]. intros [->|Hin]; cbn.
    - by destruct (result_ok r).
    - destruct (reported ev) as [r'|]; [|by apply IH]. destruct (result_ok r'); [by apply IH|done]. }
  destruct Hpost as [(-> & -> & ->)|Hpost]; [done|].
  destruct (first_failure l) as [r0|]; split.
  - by intros r [= <-].
  - by intros ->; destruct Hpost.
  - done.
  - intros Ha. split; [|by apply Hpost]. intros r Hr'. by apply Hin.
Qed.
End passes.

(** ** Synchronous calls *)

(** The completions that the library hands back in a call. *)
Definition completions_of (ev : event rt_call) : list (rpc_observer * wl_rpc_client_result_t) :=
  match ev with
  | @Event _ R c a =>
      match c in rt_call R return R -> list (rpc_observer * wl_rpc_client_result_t) with
      | Wl_rpc_async_service _ => fun r => snd r
      | Wl_rpc_async_cancel_complete _ => fun r => r
      | Wl_rpc_async_close => fun r => snd r
      | _ => fun _ => []
      end a
  end.

Section sync.
Variable async : wl_rpc_client_result_t -> rpc_completion.
Variable sizeof alignof : latest -> Z.
Variable frame : Z.
Variable response : wstruct.

(** The library has ended the call of this frame. *)
Definition delivered (h : list (event rt_call)) (observer : rpc_observer) (client : wl_rpc_client_result_t)
    : Prop :=
  In (observer, client) (flat_map completions_of h) /\ ob_callback observer = CbSync frame.

(** The frame is untouched, or holds what the library ended its call with. *)
Definition frame_state (h : list (event rt_call)) (f : sync_frame) : Prop :=
  if sf_done f then
    exists observer client, delivered h observer client /\
      completion_ok async (ob_rpc observer) client (sf_result f)
        (if decide (cp_status (sf_result f) = WL_RPC_SUCCESS) then Some (sf_response f) else None)
  else sf_result f = completion0 /\ sf_response f = response.

Definition frame_inv (stepping : bool) (h : list (event rt_call)) (e : fci_device_endpoint_t) : Prop :=
  en_stepping e = stepping /\ en_closing e = false /\ en_sync_waiting e = true /\
  exists f, en_frames e frame = Some f /\ sf_notify f = None /\ frame_state h f.

Lemma frame_state_app h l f : frame_state h f -> frame_state (h ++ l) f.
Proof.
  unfold frame_state. destruct (sf_done f); [|done]. intros (o & client & [Hin Hcb] & Hok).
  exists o, client. split; [|done]. split; [|done]. rewrite flat_map_app. apply in_app_iff. by left.
Qed.

(** What the endpoint's own frame and flags are made of is not touched by the
    functions that have nothing to do with them. *)
Definition same_frame (e e' : fci_device_endpoint_t) : Prop :=
  en_stepping e' = en_stepping e /\ en_closing e' = en_closing e /\
  en_sync_waiting e' = en_sync_waiting e /\ en_frames e' = en_frames e.

Lemma frame_inv_same st h l e e' : same_frame e e' -> frame_inv st h e -> frame_inv st (h ++ l) e'.
Proof.
  intros (H1 & H2 & H3 & H4) (I1 & I2 & I3 & f & I4 & I5 & I6). unfold frame_inv. rewrite H1, H2, H3, H4.
  do 3 (split; [done|]). exists f. do 2 (split; [done|]). by apply frame_state_app.
Qed.

Lemma frame_call st h {R A} (c : rt_call R) (f : R -> rtp A) e post :
  frame_inv st h e -> (forall r, frame_inv st (h ++ [Event c r]) e -> safe any (h ++ [Event c r]) (f r) post) ->
  safe any h (call c ≫= f) post.
Proof. intros Hi Hf. apply safe_call; [done|]. intros r. apply Hf. by apply (frame_inv_same st h _ e). Qed.

Lemma frame_keep st {A} (p : rtp A) e : forall h,
  frame_inv st h e -> safe any h p (fun h' _ => frame_inv st h' e).
Proof.
  induction p as [a|R c k IH]; intros h Hi; [done|].
  intros r. split; [done|]. apply IH. by apply (frame_inv_same st h _ e).
Qed.

Lemma frame_only st h {A B} (p : rtp A) (f : A -> rtp B) e post :
  frame_inv st h e -> (forall a h', frame_inv st h' e -> safe any h' (f a) post) ->
  safe any h (p ≫= f) post.
Proof.
  intros Hi Hf. eapply (safe_bind _ _ _ _ (fun h' _ => frame_inv st h' e)); [|by intros h' a; apply Hf].
  clear -Hi. revert h Hi. induction p as [a|R c k IH]; intros h Hi; [done|].
  intros r. split; [done|]. apply IH. by apply (frame_inv_same st h _ e).
Qed.

Lemma record_frame st h r e :
  frame_inv st h e -> safe any h (fci_device_endpoint_record r e) (frame_inv st).
Proof.
  intros Hi. unfold fci_device_endpoint_record, keep_result.
  assert (forall r', frame_inv st h (if result_ok (en_result e) then set_result e r' else e)) as Hk.
  { intros r'. rewrite <- (app_nil_r h). apply (frame_inv_same st h [] e); [|done]. by destruct (result_ok _). }
  walk_safe; try done; try apply Hk; rewrite <- ?app_assoc;
    match goal with
    | |- frame_inv st (h ++ ?l) (if _ then set_result e ?r' else e) =>
        apply (frame_inv_same st h l (if result_ok (en_result e) then set_result e r' else e)); [done|apply Hk]
    end.
Qed.

Lemma completions_frame st l e h :
  frame_inv st h e -> (forall x, In x l -> In x (flat_map completions_of h)) ->
  safe any h (run_completions async l e) (frame_inv st).
Proof.
  revert e h. induction l as [|[observer client] l IH]; intros e h Hi Hin; [by apply safe_ret|].
  cbn [run_completions]. set (e1 := endpoint_prepare async (ob_rpc observer) client e).
  assert (same_frame e e1) as Hsame.
  { unfold e1, endpoint_prepare. repeat case_match; done. }
  assert (frame_inv st h e1) as Hi1.
  { rewrite <- (app_nil_r h). by apply (frame_inv_same st h [] e). }
  eapply (safe_bind _ _ _ _ (fun h' e' => frame_inv st h' e' /\ exists l', h' = h ++ l')).
  2: { intros h' e' [Hi' [l' ->]]. apply IH; [done|]. intros x Hx. rewrite flat_map_app.
       apply in_app_iff. left. apply Hin. by right. }
  unfold endpoint_notify. destruct (ob_callback observer) as [f u|i] eqn:Hcb.
  - apply safe_call; [done|]. intros r. apply safe_ret.
    split; [by apply (frame_inv_same st h [_] e1)|]. by eexists.
  - unfold sync_done. destruct (en_frames e1 i) as [fr|] eqn:Hfr.
    2: { apply safe_ret. split; [done|]. exists []. by rewrite app_nil_r. }
    set (e2 := set_frame e1 i _).
    assert (frame_inv st h e2) as Hi2.
    { destruct Hi1 as (I1 & I2 & I3 & f0 & I4 & I5 & I6). unfold frame_inv. cbn.
      do 3 (split; [done|]). destruct (Z.eqb_spec frame i) as [<-|]; [|by exists f0].
      rewrite I4 in Hfr. injection Hfr as <-. eexists. split; [done|]. split; [done|].
      unfold frame_state. cbn. exists observer, client. split; [split; [apply Hin; by left|done]|].
      pose proof (prepare_ok async (ob_rpc observer) client e) as Hok. fold e1 in Hok. unfold offered in Hok.
      destruct (decide (cp_status (en_completion e1) = WL_RPC_SUCCESS)); done. }
    destruct (sf_notify fr).
    + apply safe_call; [done|]. intros r. apply safe_ret.
      split; [by apply (frame_inv_same st h [_] e2)|]. by eexists.
    + apply safe_ret. split; [done|]. exists []. by rewrite app_nil_r.
Qed.

Lemma hooks_frame st hooks e h :
  frame_inv st h e -> safe any h (run_hooks async sizeof alignof hooks e) (frame_inv st).
Proof.
  revert e h. induction hooks as [|[event now|now] hooks IH]; intros e h Hi; [by apply safe_ret| |];
    cbn [run_hooks].
  - eapply (safe_bind _ _ _ _ (fun h' x => frame_inv st h' (snd x))); [|intros h' [b e2]; apply IH].
    unfold pump_event. eapply (frame_only st); [exact Hi|]. intros [r rt] h' Hi'.
    eapply safe_bind; [|intros h'' e' Hi''; by apply safe_ret]. apply record_frame.
    rewrite <- (app_nil_r h'). by apply (frame_inv_same st h' [] e).
  - eapply (safe_bind _ _ _ _ (fun h' x => frame_inv st h' (snd x))); [|intros h' [b e2]; apply IH].
    unfold pump_progress. eapply (frame_only st); [exact Hi|]. intros [[last service] rt] h' Hi'.
    assert (frame_inv st h' (set_service (set_runtime e rt) last service)) as Hi1.
    { rewrite <- (app_nil_r h'). by apply (frame_inv_same st h' [] e). }
    eapply (safe_bind _ _ _ _ (frame_inv st)).
    + repeat case_match; try (by apply safe_ret). by apply record_frame.
    + intros h'' e2 Hi2. destruct (rn_async (en_runtime e2)); [|by apply safe_ret].
      eapply (frame_call st); [exact Hi2|]. intros [[serviced notified] completions] Hi3.
      eapply safe_bind; [apply completions_frame; [exact Hi3|]|].
      * intros x Hx. rewrite flat_map_app. apply in_app_iff. right. cbn. by rewrite app_nil_r.
      * intros h3 e3 Hi4. apply safe_ret. cbn. destruct (decide _); [done|].
        rewrite <- (app_nil_r h3). by apply (frame_inv_same st h3 [] e3).
Qed.

Lemma frame_inv_stepping st st' h e :
  frame_inv st h e -> frame_inv st' h (set_stepping e st').
Proof. intros (_ & I2 & I3 & f & I4). unfold frame_inv. cbn. eauto. Qed.

Lemma step_frame e h :
  frame_inv false h e ->
  safe any h (fci_device_endpoint_step async sizeof alignof e) (fun h' x => frame_inv false h' (snd x)).
Proof.
  intros Hi. unfold fci_device_endpoint_step. destruct Hi as (I1 & I2 & Hi). rewrite I1, I2. cbn [orb].
  eapply (frame_call true _ _ _ (set_result (set_stepping e true) result0)).
  { unfold frame_inv. cbn. by rewrite I2. }
  intros [stepped hooks] Hi1. eapply safe_bind; [apply hooks_frame; exact Hi1|]. intros h' e' Hi2.
  pose proof (frame_inv_stepping _ false _ _ Hi2) as Hi3.
  destruct (negb _); [by apply safe_ret|]. destruct (negb _); [|by apply safe_ret].
  apply safe_ret. cbn. destruct (result_ok _); [|done].
  rewrite <- (app_nil_r h'). by apply (frame_inv_same false h' [] (set_stepping e' false)).
Qed.

Lemma wait_frame fuel e h :
  frame_inv false h e ->
  safe any h (sync_wait async sizeof alignof fuel frame e)
    (fun h' x => forall error e', x = Some (error, e') -> frame_inv false h' e').
Proof.
  revert e h. induction fuel as [|fuel IH]; intros e h Hi; [by apply safe_ret|]. cbn [sync_wait].
  destruct (frame_done frame e); [apply safe_ret; by intros ? ? [= <- <-]|].
  eapply safe_bind; [by apply step_frame|]. intros h1 [error e1] Hi1. cbn [snd] in Hi1.
  destruct (frame_done frame e1 || negb _); [apply safe_ret; by intros ? ? [= <- <-]|].
  eapply (frame_call false); [exact Hi1|]. intros [hint [pending deadline]] Hi2.
  destruct (negb _); [apply safe_ret; by intros ? ? [= <- <-]|].
  destruct (pending || _); [by apply IH|].
  eapply (frame_call false); [exact Hi2|]. intros waited Hi3.
  destruct waited; first [by apply IH|apply safe_ret; by intros ? ? [= <- <-]].
Qed.

(** The call was accepted under this handle; the handle is cancelled. *)
Definition submits (handle : Z) (ev : event rt_call) : Prop :=
  match ev with
  | @Event _ R c a =>
      match c in rt_call R return R -> Prop with
      | Wl_rpc_async_submit _ _ _ _ _ _ => fun r => r = (WL_OK, handle)
      | _ => fun _ => False
      end a
  end.
Definition cancels (handle : Z) (ev : event rt_call) : Prop :=
  match ev with
  | Event c _ => match c with Wl_rpc_async_cancel_complete h => h = handle | _ => False end
  end.

(** What a synchronous call leaves. *)
Definition sync_post (e : fci_device_endpoint_t) (h : list (event rt_call))
    (x : option (rpc_completion * wstruct * fci_device_endpoint_t)) : Prop :=
  forall completion out e', x = Some (completion, out, e') ->
    en_sync_waiting e' = en_sync_waiting e /\ en_stepping e' = en_stepping e /\
    (e' = e \/ en_frames e' frame = None) /\
    (cp_status completion = WL_RPC_SUCCESS -> exists observer client,
       delivered h observer client /\ cp_status (async client) = WL_RPC_SUCCESS /\
       value_decode (rpc_response (ob_rpc observer)) (drop 20 (response_bytes client)) = Ok out) /\
    ((forall observer client, ~ delivered h observer client) ->
       out = response /\ cp_status completion <> WL_RPC_SUCCESS).

Lemma sync_refused e h completion :
  cp_status completion <> WL_RPC_SUCCESS -> sync_post e h (Some (completion, response, e)).
Proof. intros Hs c out e' [= <- <- <-]. split; [done|]. split; [done|]. split; [by left|]. done. Qed.

(** Leaving with the frame as it is, or with an error in place of its status. *)
Lemma sync_left e h e' f (completion : rpc_completion) :
  en_sync_waiting e = false -> en_stepping e = false -> frame_inv false h e' ->
  en_frames e' frame = Some f ->
  (completion = sf_result f \/ cp_status completion <> WL_RPC_SUCCESS) ->
  sync_post e h (Some (completion, sf_response f, set_frame (set_sync_waiting e' false) frame None)).
Proof.
  intros Hw Hs (I1 & I2 & I3 & f' & I4 & I5 & I6) Hf Hc c out e2 [= <- <- <-].
  rewrite I4 in Hf. injection Hf as ->. cbn. rewrite Hw, Hs.
  split; [done|]. split; [done|]. split; [right; by rewrite Z.eqb_refl|].
  unfold frame_state in I6. destruct (sf_done f).
  - destruct I6 as (o & client & Hd & _ & Hsu & _ & Hv). split.
    + intros Hok. destruct Hc as [->|]; [|done]. exists o, client. split; [done|]. split; [by apply Hsu|].
      destruct (Hv (sf_response f)) as [_ ?]; [by rewrite decide_True|done].
    + intros Hno. by destruct (Hno o client).
  - destruct I6 as [Hres Hout]. split.
    + intros Hok. destruct Hc as [->|]; [|done]. by rewrite Hres in Hok.
    + intros _. split; [done|]. destruct Hc as [->|]; [by rewrite Hres|done].
Qed.

Lemma frame_open e h :
  en_stepping e = false -> en_closing e = false ->
  frame_inv false h (set_frame (set_sync_waiting e true) frame (Some (frame0 response))).
Proof.
  intros Hs Hc. unfold frame_inv. cbn. rewrite Z.eqb_refl. do 3 (split; [done|]).
  by exists (frame0 response).
Qed.

Definition no_submit (ev : event rt_call) : Prop :=
  match ev with
  | Event c _ => match c with Wl_rpc_async_submit _ _ _ _ _ _ => False | _ => True end
  end.

Lemma no_submit_submits handle l ev : Forall no_submit l -> In ev l -> ~ submits handle ev.
Proof.
  intros Hl Hin. rewrite List.Forall_forall in Hl. apply Hl in Hin.
  destruct ev as [R c r]. destruct c; cbn in *; tauto.
Qed.

Lemma record_no_submit r e : only no_submit (fci_device_endpoint_record r e).
Proof. unfold fci_device_endpoint_record, keep_result. solve_only. Qed.

Lemma completions_no_submit l e : only no_submit (run_completions async l e).
Proof.
  revert e. induction l as [|[o client] l IH]; intros e; [done|]. cbn [run_completions].
  apply only_bind; [|intros; apply IH]. unfold endpoint_notify, sync_done. solve_only.
Qed.
#[local] Hint Resolve record_no_submit completions_no_submit : only.

Lemma dispatch_no_submit event rt now :
  only no_submit (fci_device_runtime_dispatch_event sizeof alignof event rt now).
Proof.
  unfold fci_device_runtime_dispatch_event, dispatch_tx, dispatch_case.
  destruct (is_tx_end event); [solve_only|]. destruct (is_rx event); [|done]. cbn [negb].
  apply only_bind; [|intros [[??]?]; solve_only].
  destruct (case_of (ev_message_id event)) as [k| | |c|c|];
    unfold retained_case, bulk_status_case, response_case, legacy_response_case; solve_only.
Qed.

Lemma hooks_no_submit hooks e : only no_submit (run_hooks async sizeof alignof hooks e).
Proof.
  revert e. induction hooks as [|[event now|now] hooks IH]; intros e; [done| |]; cbn [run_hooks];
    (apply only_bind; [|intros [? ?]; apply IH]).
  - unfold pump_event. apply only_bind; [apply dispatch_no_submit|]. intros [r rt]. solve_only.
  - unfold pump_progress, fci_device_runtime_service, fci_device_runtime_poll, service_response. solve_only.
Qed.
#[local] Hint Resolve hooks_no_submit : only.

Lemma wait_no_submit fuel e : only no_submit (sync_wait async sizeof alignof fuel frame e).
Proof.
  revert e. induction fuel as [|fuel IH]; intros e; [done|]. cbn [sync_wait].
  unfold fci_device_endpoint_step. solve_only; apply IH.
Qed.

(** The handles of a history: every call that was accepted has been ended by the
    library or is cancelled. *)
Definition settled (h : list (event rt_call)) : Prop :=
  forall handle ev, In ev h -> submits handle ev ->
    (exists observer client, delivered h observer client) \/ exists ev', In ev' h /\ cancels handle ev'.

Lemma settled_none h : Forall no_submit h -> settled h.
Proof. intros Hh handle ev Hin Hs. by destruct (no_submit_submits _ _ _ Hh Hin Hs). Qed.

(** The call that is under way is the only one that was submitted. *)
Definition under_way (error : wl_result) (handle : Z) (h : list (event rt_call)) : Prop :=
  forall handle' ev, In ev h -> submits handle' ev -> error = WL_OK /\ handle' = handle.

Lemma async_under_way c request timeout e h :
  Forall no_submit h ->
  safe any h (endpoint_async c request timeout (CbSync frame) e)
    (fun h' '(error, handle) => under_way error handle h').
Proof.
  intros Hh. unfold endpoint_async, endpoint_submit_at.
  assert (forall h' error handle, Forall no_submit h' -> under_way error handle h') as Hnone.
  { intros h' error handle Hh' handle' ev Hin Hs. by destruct (no_submit_submits _ _ _ Hh' Hin Hs). }
  walk_safe; try done; try (apply Hnone; rewrite ?Forall_app; by repeat constructor).
  destruct r0 as [error handle]. intros handle' ev Hin Hs.
  apply in_app_iff in Hin as [Hin|[<-|[]]]; [|by injection Hs as -> ->].
  apply in_app_iff in Hin as [Hin|[<-|[]]]; [|done].
  by destruct (no_submit_submits _ _ _ Hh Hin Hs).
Qed.

Definition refused_or_left (e : fci_device_endpoint_t) (h : list (event rt_call))
    (x : option (rpc_completion * wstruct * fci_device_endpoint_t)) : Prop :=
  sync_post e h x /\ (x <> None -> settled h).

Lemma sync_safe waiter fuel c request timeout e :
  safe any [] (endpoint_sync async sizeof alignof false waiter fuel c request response timeout frame e)
    (refused_or_left e).
Proof.
  unfold endpoint_sync.
  assert (forall h error, Forall no_submit h ->
    refused_or_left e h (Some (local_error error completion0, response, e))) as Hrefused.
  { intros h error Hh. split; [by apply sync_refused|]. intros _. by apply settled_none. }
  destruct (en_stepping e || en_closing e || en_sync_waiting e) eqn:Hflags;
    [by apply safe_ret, Hrefused|].
  rewrite !orb_false_iff in Hflags. destruct Hflags as [[Hst Hcl] Hw].
  apply safe_call; [done|]. intros linked.
  assert (Forall no_submit ([] ++ [Event Wl_endpoint_link linked])) as Hns by (by repeat constructor).
  set (h := [] ++ [Event Wl_endpoint_link linked]) in *.
  destruct (negb linked); [by apply safe_ret, Hrefused|].
  destruct (negb waiter); [by apply safe_ret, Hrefused|].
  set (e0 := set_frame _ frame _).
  pose proof (frame_open e h Hst Hcl) as Hi. fold e0 in Hi.
  eapply (safe_bind _ _ _ _ (fun h' '(error, handle) => under_way error handle h' /\ frame_inv false h' e0)).
  { eapply safe_mono; [apply safe_conj;
      [by apply async_under_way|eapply (frame_keep false); exact Hi]|].
    by intros h' [error handle] [??]. }
  intros h1 [error handle] [Huw Hi1].
  destruct (decide (error = WL_OK)) as [->|Hne].
  2: { destruct Hi1 as (I1 & I2 & I3 & f & I4 & I5). rewrite I4. cbn [default]. apply safe_ret. split.
       - apply (sync_left e h1 e0 f); [done|done| |done|by right]. by unfold frame_inv; eauto 10.
       - intros _ handle' ev Hin Hs. by destruct (Huw handle' ev Hin Hs). }
  eapply safe_bind; [apply safe_adds; [apply wait_no_submit|apply wait_frame; exact Hi1]|].
  intros h2 [[error e1]|] [Hwait (l2 & -> & Hl2)]; [|by apply safe_ret].
  specialize (Hwait error e1 eq_refl).
  assert (forall l handle' ev, Forall no_submit l -> In ev ((h1 ++ l2) ++ l) -> submits handle' ev -> handle' = handle) as Hone.
  { intros l handle' ev Hl Hin Hs. rewrite !in_app_iff in Hin. destruct Hin as [[Hin|Hin]|Hin].
    - by destruct (Huw handle' ev Hin Hs).
    - by destruct (no_submit_submits _ _ _ Hl2 Hin Hs).
    - by destruct (no_submit_submits _ _ _ Hl Hin Hs). }
  destruct (frame_done frame e1) eqn:Hdone.
  - pose proof Hwait as (I1 & I2 & I3 & f & I4 & I5 & I6). unfold frame_done in Hdone. rewrite I4 in Hdone |- *.
    cbn [default]. apply safe_ret. split.
    + apply (sync_left e _ e1 f); [done..|by left].
    + intros _ handle' ev _ _. left. unfold frame_state in I6. rewrite Hdone in I6.
      destruct I6 as (o & client & Hd & _). by exists o, client.
  - apply safe_call; [done|]. intros completions. set (ev := Event (Wl_rpc_async_cancel_complete handle) completions).
    eapply safe_bind; [apply safe_adds; [apply completions_no_submit|apply completions_frame]|].
    + apply (frame_inv_stepping false). by apply (frame_inv_same false (h1 ++ l2) [ev] e1).
    + intros x Hx. rewrite flat_map_app. apply in_app_iff. right. cbn. by rewrite app_nil_r.
    + intros h3 e2 [Hi3 (l3 & -> & Hl3)]. pose proof (frame_inv_stepping _ false _ _ Hi3) as Hi4.
      pose proof Hi4 as (I1 & I2 & I3 & f & I4 & I5). rewrite I4. cbn [default]. apply safe_ret. split.
      * apply (sync_left e _ (set_stepping e2 false) f); [done..|]. right. cbn. by destruct (decide _).
      * intros _ handle' ev' Hin Hs. right. exists ev. split; [rewrite !in_app_iff; cbn; tauto|]. cbn.
        symmetry. apply (Hone (ev :: l3) handle' ev'); [by constructor| |done].
        rewrite <- app_assoc in Hin. exact Hin.
Qed.

(** A synchronous call leaves nothing behind.  When it returns, the endpoint's
    flags are as before and its frame is gone; every call that the library had
    accepted for it has been ended by the library or is cancelled, so that no
    callback can refer to the frame; it succeeds only with a response that the
    library delivered to this frame, decoded into the caller's value; and when
    nothing was delivered the caller's value is untouched and the call failed. *)
Theorem sync_leaves_nothing waiter fuel c request timeout e l completion out e' :
  en_frames e frame = None ->
  runs (endpoint_sync async sizeof alignof false waiter fuel c request response timeout frame e) l
    (Some (completion, out, e')) ->
  en_sync_waiting e' = en_sync_waiting e /\ en_stepping e' = en_stepping e /\ en_frames e' frame = None /\
  settled l /\
  (cp_status completion = WL_RPC_SUCCESS -> exists observer client,
     delivered l observer client /\ cp_status (async client) = WL_RPC_SUCCESS /\
     value_decode (rpc_response (ob_rpc observer)) (drop 20 (response_bytes client)) = Ok out) /\
  ((forall observer client, ~ delivered l observer client) ->
     out = response /\ cp_status completion <> WL_RPC_SUCCESS).
Proof.
  intros Hno Hr. destruct (safe_runs _ _ _ _ _ _ (sync_safe waiter fuel c request timeout e) Hr) as [_ [Hpost Hset]].
  destruct (Hpost _ _ _ eq_refl) as (H1 & H2 & H3 & H4 & H5). cbn [app] in *.
  split; [done|]. split; [done|]. split; [by destruct H3 as [->|]|]. split; [by apply Hset|]. done.
Qed.
End sync.

(** ** A sample call *)

(** The transmission of a response is refused: the response is given back. *)
Lemma service_settles_witness :
  exists l result out rt,
    runs (fci_device_runtime_service (sample_runtime true) 6) l (result, out, rt) /\
    count_calls acquires_response l = 1%nat /\
    count_calls settles_response l = count_calls acquires_response l /\ sv_deferred out = 1.
Proof.
  exists [ Event (Wl_rpc_client_poll 6) (WL_RPC_OK, 0);
           Event (Wl_rpc_server_expired_acquire 6) (Err WL_RPC_ERR_NOT_FOUND);
           Event (Wl_rpc_server_poll 6) (WL_RPC_OK, 0);
           Event Wl_rpc_server_response_acquire (Ok sample_cached);
           Event (Wl_send_reliable 25118 sample_response_bytes 6) (WL_ERR_QUEUE_FULL, 0);
           Event (Wl_rpc_server_response_defer sample_cached) WL_RPC_OK ].
  eexists _, _, _. split; [run_trace|]. split; [reflexivity|]. split; [|reflexivity].
  eapply (service_settles (sample_runtime true) 6). run_trace.
Defined.

Definition sample_completions : list (rpc_observer * wl_rpc_client_result_t) :=
  [ ({| ob_rpc := sample_rpc; ob_callback := CbApplication 31 32 |},
     sample_client WL_RPC_CLIENT_COMPLETED (Some sample_response_bytes));
    ({| ob_rpc := sample_rpc; ob_callback := CbApplication 33 34 |},
     sample_client WL_RPC_CLIENT_TIMED_OUT None) ].

Definition completed_ok : rpc_completion :=
  {| cp_status := WL_RPC_SUCCESS; cp_rejection := 0; cp_local_error := WL_OK;
     cp_codec_error := WL_CODEC_OK; cp_runtime_error := WL_RPC_OK |}.

(** One call that has succeeded and one that has not. *)
Lemma completions_called_once_witness :
  let h := [ Event (Completion_callback 31 32 completed_ok (Some sample_response)) tt;
             Event (Completion_callback 33 34 completion0 None) tt ] in
  count_calls application_callback h = 2%nat /\
  count_calls application_callback h = length (List.filter to_application sample_completions).
Proof.
  intros h. split; [reflexivity|].
  assert (exists e', runs (run_completions sample_completion sample_completions sample_endpoint) h e') as [e' Hrun]
    by (eexists; run_trace).
  exact (proj1 (completions_called_once sample_completion sample_completions sample_endpoint h e' Hrun)).
Defined.

(** A message of no route, and then a response of this endpoint. *)
Definition foreign_event : wl_event_t := sample_event WL_EVT_RELIABLE_RX 7 [].
Definition foreign_result : runtime_result :=
  {| r_domain := FCI_DEVICE_RUNTIME_UNKNOWN_MESSAGE; r_event_type := WL_EVT_RELIABLE_RX;
     r_message_id := 7; r_detail := DETAIL_NONE; r_event_consumed := true |}.

Definition failing_pass :=
  play (fci_device_endpoint_step sample_completion (fun _ => 8) (fun _ => 8) sample_endpoint)
    {| lib_hooks := [[HEvent foreign_event 5; HEvent response_event 6]]; lib_ended := [];
       lib_client := sample_client WL_RPC_CLIENT_WAIT_RESPONSE None |}.

Lemma step_keeps_first_failure_witness :
  first_failure (fst failing_pass) = Some foreign_result /\
  fst (snd failing_pass) <> WL_OK /\ en_result (snd (snd failing_pass)) = foreign_result.
Proof.
  split; [vm_compute; reflexivity|].
  apply (step_keeps_first_failure sample_completion (fun _ => 8) (fun _ => 8) sample_endpoint (fst failing_pass)).
  - reflexivity.
  - unfold failing_pass. apply played.
  - vm_compute. reflexivity.
Defined.

Definition sync_observer : rpc_observer := {| ob_rpc := sample_rpc; ob_callback := CbSync 4 |}.
Definition completed_client : wl_rpc_client_result_t :=
  sample_client WL_RPC_CLIENT_COMPLETED (Some sample_response_bytes).
Definition sync_run :=
  play (endpoint_sync sample_completion (fun _ => 8) (fun _ => 8) false true 3 sample_rpc sample_request []
    100 4 sample_endpoint)
    {| lib_hooks := [[HProgress 6]]; lib_ended := [[(sync_observer, completed_client)]];
       lib_client := completed_client |}.

(** What a run that has ended returns. *)
Definition returned (x : option (rpc_completion * wstruct * fci_device_endpoint_t))
    : rpc_completion * wstruct * fci_device_endpoint_t := default (completion0, [], sample_endpoint) x.

(** A call that the library completes in the first pass. *)
Lemma sync_leaves_nothing_witness :
  snd (fst (returned (snd sync_run))) = sample_response /\
  en_frames (snd (returned (snd sync_run))) 4 = None /\ settled 4 (fst sync_run).
Proof.
  split; [vm_compute; reflexivity|].
  destruct (sync_leaves_nothing sample_completion (fun _ => 8) (fun _ => 8) 4 [] true 3 sample_rpc sample_request
    100 sample_endpoint (fst sync_run) (fst (fst (returned (snd sync_run)))) (snd (fst (returned (snd sync_run))))
    (snd (returned (snd sync_run)))) as (_ & _ & Hf & Hs & _).
  - reflexivity.
  - assert (snd sync_run = Some (fst (fst (returned (snd sync_run))), snd (fst (returned (snd sync_run))),
      snd (returned (snd sync_run)))) as <- by (vm_compute; reflexivity).
    unfold sync_run. apply interp_runs.
  - split; [exact Hf|exact Hs].
Defined.
