(* ===== verification/WaitProps.v ===== *)
(** * A synchronous wait ends with its call

    A wait of [fci_device_endpoint_*_sync] goes on only while the library has not
    ended its call: each round is a pass of the owner, and the pass in which the
    call ends is the last. *)

From Stdlib Require Import String.
From S2P Require Import Prelude WlcWire WlcSchema WlcCodec WlcValue FciMessages DeviceTypes Endpoint EndpointOps FciRpc Prog RuntimeCalls ManagedRpc RuntimeService RuntimeDispatch RpcEndpoint DispatchProps RuntimeProps RuntimeSamples.

(** A pass of the owner. *)
Definition takes_step (ev : event rt_call) : bool :=
  match ev with
  | Event c _ => match c with Wl_endpoint_step _ => true | _ => false end
  end.

(** Nothing to do with passes or the ends of calls. *)
Definition plain (ev : event rt_call) : Prop := takes_step ev = false /\ completions_of ev = [].

Lemma plain_list l : Forall plain l -> count_calls takes_step l = 0%nat /\ flat_map completions_of l = [].
Proof. induction 1 as [|ev l [Ht Hc] _ [IH1 IH2]]; [done|]. cbn. by rewrite Ht, Hc, IH1, IH2. Qed.

Section wait.
Variable async : wl_rpc_client_result_t -> rpc_completion.
Variable sizeof alignof : latest -> Z.
Variable frame : Z.

Definition for_frame (x : rpc_observer * wl_rpc_client_result_t) : bool :=
  bool_decide (ob_callback (fst x) = CbSync frame).

(** The frame is there, and is done when one of the calls that have ended is its. *)
Definition ready (ended : list (rpc_observer * wl_rpc_client_result_t)) (e : fci_device_endpoint_t) : Prop :=
  exists f, en_frames e frame = Some f /\ (sf_done f = false -> Forall (fun x => for_frame x = false) ended).

(** After a history with [n] passes. *)
Definition waiting (n : nat) (h : list (event rt_call)) (e : fci_device_endpoint_t) : Prop :=
  ready (flat_map completions_of h) e /\ count_calls takes_step h = n.

Lemma ready_frames ended e e' : en_frames e' frame = en_frames e frame -> ready ended e -> ready ended e'.
Proof. unfold ready. by intros ->. Qed.

Lemma waiting_plain n h l e e' :
  Forall plain l -> en_frames e' = en_frames e -> waiting n h e -> waiting n (h ++ l) e'.
Proof.
  intros [Ht Hc]%plain_list He [Hr Hn]. unfold waiting. rewrite flat_map_app, count_calls_app, Hc, Ht, app_nil_r.
  split; [|lia]. apply (ready_frames _ e); [by rewrite He|done].
Qed.

Lemma waiting_same n h e e' : en_frames e' = en_frames e -> waiting n h e -> waiting n h e'.
Proof. intros He Hw. rewrite <- (app_nil_r h). by apply (waiting_plain n h [] e). Qed.

Lemma plain_bind n h {A B} (p : rtp A) (f : A -> rtp B) e post :
  only plain p -> waiting n h e -> (forall a h', waiting n h' e -> safe any h' (f a) post) ->
  safe any h (p ≫= f) post.
Proof.
  intros Hp Hw Hf. eapply (safe_bind _ _ _ _ (fun h' _ => waiting n h' e)); [|by intros h' a; apply Hf].
  apply (safe_only plain); [done|done|]. intros l a Hl. by apply (waiting_plain n h l e).
Qed.

Lemma record_waiting n h r e : waiting n h e -> safe any h (fci_device_endpoint_record r e) (waiting n).
Proof.
  intros Hw. unfold fci_device_endpoint_record, keep_result.
  assert (forall l r', Forall plain l -> waiting n (h ++ l) (if result_ok (en_result e) then set_result e r' else e))
    as Hk by (intros l r' Hl; apply (waiting_plain n h l e); [done|by destruct (result_ok _)|done]).
  walk_safe; try done; first [by apply Hk; repeat constructor|rewrite <- (app_nil_r h); by apply Hk].
Qed.

(** The completions of a list end the frame's wait when one is its. *)
Lemma completions_ready l : forall e h ended,
  ready ended e ->
  safe any h (run_completions async l e) (fun h' e' =>
    ready (ended ++ l) e' /\ exists h2, h' = h ++ h2 /\ Forall plain h2).
Proof.
  induction l as [|[observer client] l IH]; intros e h ended Hr.
  { apply safe_ret. rewrite app_nil_r. split; [done|]. exists []. by rewrite app_nil_r. }
  cbn [run_completions]. set (e1 := endpoint_prepare async (ob_rpc observer) client e).
  assert (ready ended e1) as Hr1 by (apply (ready_frames _ e); [by unfold e1; rewrite prepare_frames|done]).
  eapply (safe_bind _ _ _ _ (fun h' e' => ready (ended ++ [(observer, client)]) e' /\
    exists h2, h' = h ++ h2 /\ Forall plain h2)).
  2: { intros h' e2 [Hr2 (h2 & -> & Hh2)]. eapply safe_mono; [by apply (IH e2 _ (ended ++ [(observer, client)]))|].
       intros h'' e3 [Hr3 (h3 & -> & Hh3)]. rewrite <- app_assoc in Hr3. split; [exact Hr3|].
       exists (h2 ++ h3). split; [by rewrite app_assoc|]. by apply Forall_app. }
  assert (for_frame (observer, client) = false -> ready (ended ++ [(observer, client)]) e1) as Hother.
  { intros Hne. destruct Hr1 as (f & Hf & Hd). exists f. split; [done|]. intros Hnd. apply Forall_app.
    split; [by apply Hd|by repeat constructor]. }
  unfold endpoint_notify. destruct (ob_callback observer) as [f u|i] eqn:Hcb.
  - apply safe_call; [done|]. intros r. apply safe_ret. split.
    + apply Hother. unfold for_frame. cbn. rewrite Hcb. by apply bool_decide_false.
    + eexists. split; [reflexivity|by repeat constructor].
  - assert (forall f, sf_done f = true -> ready (ended ++ [(observer, client)]) (set_frame e1 i (Some f))) as Hset.
    { intros f Hf. destruct (Z.eq_dec i frame) as [->|Hne].
      - exists f. cbn. rewrite Z.eqb_refl. split; [done|]. congruence.
      - apply (ready_frames _ e1); [cbn; by destruct (Z.eqb_spec frame i); [congruence|]|].
        apply Hother. unfold for_frame. cbn. rewrite Hcb. apply bool_decide_false. congruence. }
    unfold sync_done. destruct (en_frames e1 i) as [fr|] eqn:Hfr.
    2: { apply safe_ret. split; [|exists []; by rewrite app_nil_r]. apply Hother. unfold for_frame. cbn.
         rewrite Hcb. apply bool_decide_false. intros [= ->]. destruct Hr1 as (f & Hf & _). congruence. }
    destruct (sf_notify fr).
    + apply safe_call; [done|]. intros r. apply safe_ret. split; [by apply Hset|].
      eexists. split; [reflexivity|by repeat constructor].
    + apply safe_ret. split; [by apply Hset|]. exists []. by rewrite app_nil_r.
Qed.

Lemma dispatch_plain event rt now : only plain (fci_device_runtime_dispatch_event sizeof alignof event rt now).
Proof.
  unfold fci_device_runtime_dispatch_event, dispatch_tx, dispatch_case.
  destruct (is_tx_end event); [solve_only|]. destruct (is_rx event); [|done]. cbn [negb].
  apply only_bind; [|intros [[??]?]; solve_only].
  destruct (case_of (ev_message_id event)) as [k| | |c|c|];
    unfold retained_case, bulk_status_case, response_case, legacy_response_case; solve_only.
Qed.

Lemma service_plain rt now : only plain (fci_device_runtime_service rt now).
Proof. unfold fci_device_runtime_service, fci_device_runtime_poll, service_response. solve_only. Qed.

Lemma hooks_waiting n hooks : forall e h,
  waiting n h e -> safe any h (run_hooks async sizeof alignof hooks e) (waiting n).
Proof.
  induction hooks as [|[event now|now] hooks IH]; intros e h Hw; [by apply safe_ret| |]; cbn [run_hooks].
  - eapply (safe_bind _ _ _ _ (fun h' x => waiting n h' (snd x))); [|intros h' [b e2]; apply IH].
    unfold pump_event. eapply (plain_bind n); [apply dispatch_plain|exact Hw|]. intros [r rt] h' Hw'.
    eapply safe_bind; [|intros h'' e' Hw''; by apply safe_ret]. apply record_waiting. by apply (waiting_same n h' e).
  - eapply (safe_bind _ _ _ _ (fun h' x => waiting n h' (snd x))); [|intros h' [b e2]; apply IH].
    unfold pump_progress. eapply (plain_bind n); [apply service_plain|exact Hw|]. intros [[last service] rt] h' Hw'.
    assert (waiting n h' (set_service (set_runtime e rt) last service)) as Hw1 by (by apply (waiting_same n h' e)).
    eapply (safe_bind _ _ _ _ (waiting n)).
    + repeat case_match; try (by apply safe_ret). by apply record_waiting.
    + intros h'' e2 [Hr2 Hn2]. destruct (rn_async (en_runtime e2)); [|by apply safe_ret].
      apply safe_call; [done|]. intros [[serviced notified] completions].
      eapply safe_bind; [by apply completions_ready|]. intros h3 e3 [Hr3 (h4 & -> & [Ht Hc]%plain_list)].
      apply safe_ret. apply (waiting_same n _ e3); [cbn; by destruct (decide _)|].
      unfold waiting. rewrite !flat_map_app, !count_calls_app, Hc, Ht, app_nil_r. cbn. rewrite app_nil_r.
      split; [done|lia].
Qed.

Lemma step_waiting n e h :
  waiting n h e ->
  safe any h (fci_device_endpoint_step async sizeof alignof e)
    (fun h' x => fst x = WL_OK -> waiting (S n) h' (snd x)).
Proof.
  intros Hw. unfold fci_device_endpoint_step. destruct (_ || _); [by apply safe_ret|].
  apply safe_call; [done|]. intros [stepped hooks].
  assert (waiting (S n) (h ++ [Event (Wl_endpoint_step (en_event_budget (set_result (set_stepping e true) result0)))
    (stepped, hooks)]) (set_result (set_stepping e true) result0)) as Hw1.
  { destruct Hw as [Hr Hn]. unfold waiting. rewrite flat_map_app, count_calls_app. cbn. rewrite app_nil_r.
    split; [by apply (ready_frames _ e)|lia]. }
  eapply safe_bind; [apply hooks_waiting; exact Hw1|]. intros h' e' Hw2.
  destruct (negb _); [apply safe_ret; intros _; by apply (waiting_same _ _ e')|].
  destruct (negb _); apply safe_ret; [done|]. intros _. by apply (waiting_same _ _ e').
Qed.

Lemma wait_waiting fuel : forall n e h,
  waiting n h e -> frame_done frame e = false ->
  safe any h (sync_wait async sizeof alignof fuel frame e) (fun h' x => x = None ->
    count_calls takes_step h' = (n + fuel)%nat /\ Forall (fun x => for_frame x = false) (flat_map completions_of h')).
Proof.
  induction fuel as [|fuel IH]; intros n e h Hw Hd.
  - apply safe_ret. intros _. destruct Hw as [(f & Hf & Hr) Hn]. unfold frame_done in Hd. rewrite Hf in Hd.
    split; [lia|by apply Hr].
  - cbn [sync_wait]. rewrite Hd. eapply safe_bind; [by apply step_waiting|]. intros h1 [error e1] Hw1.
    cbn [fst snd] in Hw1. destruct (frame_done frame e1) eqn:Hd1; [by apply safe_ret|].
    case_bool_decide as He; [|by apply safe_ret]. specialize (Hw1 He). cbn [orb negb].
    apply safe_call; [done|]. intros [hint [pending deadline]].
    assert (forall ev, plain ev -> forall h', waiting (S n) h' e1 -> waiting (S n) (h' ++ [ev]) e1) as Hev
      by (intros ev Hev h' Hw'; apply (waiting_plain _ h' [ev] e1); [by apply List.Forall_cons|done|done]).
    pose proof (Hev (Event Wl_endpoint_get_hint (hint, (pending, deadline))) ltac:(done) h1 Hw1) as Hw2.
    destruct (negb _); [by apply safe_ret|].
    assert (forall h', waiting (S n) h' e1 -> safe any h' (sync_wait async sizeof alignof fuel frame e1)
      (fun h' x => x = None -> count_calls takes_step h' = (n + S fuel)%nat /\
         Forall (fun x => for_frame x = false) (flat_map completions_of h'))) as Hagain.
    { intros h' Hw'. eapply safe_mono; [by apply (IH (S n))|]. intros h'' x Hx Hnone.
      destruct (Hx Hnone) as [Hn ?]. split; [lia|done]. }
    destruct (_ || _); [by apply Hagain|]. apply safe_call; [done|]. intros waited.
    pose proof (Hev (Event (Waiter_wait deadline) waited) ltac:(done) _ Hw2) as Hw3.
    destruct waited; first [by apply Hagain|by apply safe_ret].
Qed.

(** A synchronous wait goes on only while its call does.  A wait that has not
    returned after a number of rounds has made that many passes of the owner, and
    in none of them has the library ended a call of this frame: the pass in which
    the call ends (by its response, its rejection or its deadline) ends the wait,
    whatever else the passes do, and no error of a pass, of the hint or of the
    waiter is waited over. *)
Theorem wait_ends_with_call fuel e l :
  is_Some (en_frames e frame) -> frame_done frame e = false ->
  runs (sync_wait async sizeof alignof fuel frame e) l None ->
  count_calls takes_step l = fuel /\
  forall observer client, ~ delivered frame l observer client.
Proof.
  intros [f Hf] Hd Hr.
  assert (waiting 0 [] e) as Hw by (split; [exists f; split; [done|constructor]|done]).
  destruct (safe_runs _ _ _ _ _ _ (wait_waiting fuel 0 e [] Hw Hd) Hr) as [_ Hpost].
  destruct (Hpost eq_refl) as [Hn Hnone]. split; [done|]. intros observer client [Hin Hcb].
  rewrite List.Forall_forall in Hnone. specialize (Hnone _ Hin). unfold for_frame in Hnone. cbn in Hnone.
  by apply bool_decide_eq_false in Hnone.
Qed.
End wait.

(** ** A sample wait *)

Definition waiting_endpoint : fci_device_endpoint_t := set_frame sample_endpoint 4 (Some (frame0 [])).

(** Two rounds without an answer. *)
Definition idle_run :=
  play (sync_wait sample_completion (fun _ => 8) (fun _ => 8) 2 4 waiting_endpoint)
    {| lib_hooks := [[HProgress 6]; [HProgress 11]]; lib_ended := [];
       lib_client := sample_client WL_RPC_CLIENT_WAIT_RESPONSE None |}.

Lemma wait_ends_with_call_witness :
  snd idle_run = None /\ count_calls takes_step (fst idle_run) = 2%nat /\
  forall observer client, ~ delivered 4 (fst idle_run) observer client.
Proof.
  split; [vm_compute; reflexivity|].
  apply (wait_ends_with_call sample_completion (fun _ => 8) (fun _ => 8) 4 2 waiting_endpoint (fst idle_run)).
  - by eexists.
  - reflexivity.
  - assert (snd idle_run = None) as <- by (vm_compute; reflexivity). unfold idle_run. apply interp_runs.
Defined.
