(* ===== verification/RuntimeInit.v ===== *)
(** * Laying out and initialising the runtime

    [generated/wirelink/host/fci_device_runtime.c], lines 312-884: the defaults
    of a configuration, the layout of the storage, its requirements, and the
    initialisation of an instance in storage that the caller gives.  Sizes and
    alignments of C types are parameters; of a message cell the library says how
    much storage it needs. *)

From Stdlib Require Import Sorted String.
From S2P Require Import Prelude WlcWire WlcSchema WlcCodec FciMessages DeviceTypes Endpoint EndpointOps FciRpc Prog RuntimeCalls ManagedRpc RuntimeService RuntimeDispatch RpcEndpoint.

(** ** Configurations *)

Inductive wl_rpc_cache_policy_t :=
| WL_RPC_CACHE_REJECT_NEW | WL_RPC_CACHE_EVICT_OLDEST | WL_RPC_CACHE_OTHER (value : Z).

(** The value of a policy that is neither of the two. *)
Definition unknown_policy (p : wl_rpc_cache_policy_t) : option Z :=
  match p with WL_RPC_CACHE_OTHER value => Some value | _ => None end.

(** [fci_device_runtime_config_t]; a handler that may be null is a flag, those of
    the requests by the id of the request. *)
Record fci_device_runtime_config_t := {
  cf_generation : latest -> Z;
  cf_client_enabled : Z;
  cf_client_slot_count : Z;
  cf_client_response_capacity : Z;
  cf_client_next_operation_id : Z;
  cf_server_enabled : Z;
  cf_server_pending_slot_count : Z;
  cf_server_cache_slot_count : Z;
  cf_server_response_capacity : Z;
  cf_server_pending_timeout : Z;
  cf_server_cache_ttl : Z;
  cf_server_cache_policy : wl_rpc_cache_policy_t;
  cf_bulk_handler : bool;
  cf_request_handler : Z -> bool
}.

(** [fci_device_runtime_config_defaults]. *)
Definition fci_device_runtime_config_defaults : fci_device_runtime_config_t :=
  {| cf_generation := fun _ => 1; cf_client_enabled := 0; cf_client_slot_count := 1;
     cf_client_response_capacity := 226; cf_client_next_operation_id := 1; cf_server_enabled := 0;
     cf_server_pending_slot_count := 1; cf_server_cache_slot_count := 1;
     cf_server_response_capacity := 226; cf_server_pending_timeout := 0; cf_server_cache_ttl := 0;
     cf_server_cache_policy := WL_RPC_CACHE_REJECT_NEW; cf_bulk_handler := false;
     cf_request_handler := fun _ => false |}.

(** [fci_device_runtime_config_enable_client]. *)
Definition fci_device_runtime_config_enable_client (c : fci_device_runtime_config_t)
    : wl_result * fci_device_runtime_config_t :=
  if (cf_client_slot_count c =? 0) || (cf_client_response_capacity c =? 0) then (WL_ERR_NOT_SUPPORTED, c)
  else (WL_OK,
    {| cf_generation := cf_generation c; cf_client_enabled := 1;
       cf_client_slot_count := cf_client_slot_count c;
       cf_client_response_capacity := cf_client_response_capacity c;
       cf_client_next_operation_id := cf_client_next_operation_id c;
       cf_server_enabled := cf_server_enabled c;
       cf_server_pending_slot_count := cf_server_pending_slot_count c;
       cf_server_cache_slot_count := cf_server_cache_slot_count c;
       cf_server_response_capacity := cf_server_response_capacity c;
       cf_server_pending_timeout := cf_server_pending_timeout c;
       cf_server_cache_ttl := cf_server_cache_ttl c;
       cf_server_cache_policy := cf_server_cache_policy c; cf_bulk_handler := cf_bulk_handler c;
       cf_request_handler := cf_request_handler c |}).

(** [fci_device_runtime_config_enable_server]: this build has no server. *)
Definition fci_device_runtime_config_enable_server (c : fci_device_runtime_config_t)
    : wl_result * fci_device_runtime_config_t := (WL_ERR_NOT_SUPPORTED, c).

(** [fci_device_runtime_roles_valid]. *)
Definition fci_device_runtime_roles_valid (c : fci_device_runtime_config_t) : wl_result :=
  if negb (cf_server_enabled c =? 0) then WL_ERR_NOT_SUPPORTED
  else if existsb (fun r => cf_request_handler c (rpc_request_id r)) (managed_rpcs ++ legacy_rpcs)
  then WL_ERR_NOT_SUPPORTED else WL_OK.

(** ** Regions of storage *)

(** [fci_device_runtime_storage_cursor_t], without its base. *)
Record cursor := { cu_size : Z; cu_offset : Z }.

(** A region: its offset, size and alignment. *)
Record region := { rg_offset : Z; rg_size : Z; rg_alignment : Z }.

(** [fci_device_runtime_storage_region]. *)
Definition fci_device_runtime_storage_region (alignment count element_size : Z) (c : cursor)
    : res wl_result (region * cursor) :=
  if (alignment =? 0) || negb (Z.land alignment (alignment - 1) =? 0) then Err WL_ERR_INVALID_ARG
  else if negb (count =? 0) && (element_size >? SIZE_MAX / count) then Err WL_ERR_INVALID_ARG
  else
    let region_size := count * element_size in
    if cu_offset c >? SIZE_MAX - (alignment - 1) then Err WL_ERR_INVALID_ARG
    else
      let aligned := Z.land (cu_offset c + (alignment - 1)) (Z.lnot (alignment - 1)) in
      if region_size >? SIZE_MAX - aligned then Err WL_ERR_INVALID_ARG
      else if aligned + region_size >? cu_size c then Err WL_ERR_BUF_TOO_SMALL
      else Ok ({| rg_offset := aligned; rg_size := region_size; rg_alignment := alignment |},
               {| cu_size := cu_size c; cu_offset := aligned + region_size |}).

(** Regions one after another. *)
Fixpoint take_regions (l : list (Z * Z * Z)) (c : cursor) : res wl_result (list region * cursor) :=
  match l with
  | [] => Ok ([], c)
  | (alignment, count, element_size) :: l =>
      '(r, c) ← fci_device_runtime_storage_region alignment count element_size c;
      '(rs, c) ← take_regions l c;
      Ok (r :: rs, c)
  end.

Section layout.
Variable sizeof alignof : latest -> Z.
Variable sizeof_client_slot alignof_client_slot : Z.
Variable sizeof_pending_slot alignof_pending_slot : Z.
Variable sizeof_cache_slot alignof_cache_slot : Z.

(** What [wl_latest_requirements] answers for a cell and its initial generation. *)
Variable latest_requirements : latest -> Z -> res wl_result Z.

Definition latests : list latest := [ArmStatusLatest; MotorFeedbackLatest; ArmDiagnosticsLatest].

(** [fci_device_runtime_layout_t] with the requirements: the regions of the
    cells, and of the client and the server where they are enabled. *)
Record runtime_layout := {
  lo_latest : list region;
  lo_client : list region;
  lo_server : list region;
  lo_size : Z;
  lo_alignment : Z
}.
Definition lo_regions (l : runtime_layout) : list region := lo_latest l ++ lo_client l ++ lo_server l.

(** [if (alignment < a) alignment = a], over the types that have a region. *)
Definition widest (l : list Z) : Z := foldl (fun alignment a => if alignment <? a then a else alignment) 1 l.

(** The regions of the cells, one after another. *)
Fixpoint latest_regions (ks : list latest) (generation : latest -> Z) (c : cursor)
    : res wl_result (list region * cursor) :=
  match ks with
  | [] => Ok ([], c)
  | k :: ks =>
      need ← latest_requirements k (generation k);
      '(r, c) ← fci_device_runtime_storage_region (alignof k) 1 need c;
      '(rs, c) ← latest_regions ks generation c;
      Ok (r :: rs, c)
  end.

(** The client's regions, lines 462-469. *)
Definition client_regions (cf : fci_device_runtime_config_t) (c : cursor)
    : res wl_result (list region * cursor) :=
  if cf_client_enabled cf =? 0 then Ok ([], c)
  else if (cf_client_slot_count cf =? 0) || (cf_client_response_capacity cf =? 0)
  then Err WL_ERR_INVALID_ARG
  else take_regions
    [(alignof_client_slot, cf_client_slot_count cf, sizeof_client_slot);
     (1, cf_client_slot_count cf, cf_client_response_capacity cf)] c.

(** The server's regions, lines 470-482. *)
Definition server_regions (cf : fci_device_runtime_config_t) (c : cursor)
    : res wl_result (list region * cursor) :=
  if cf_server_enabled cf =? 0 then Ok ([], c)
  else if (cf_server_pending_slot_count cf =? 0) || (cf_server_cache_slot_count cf =? 0) ||
          (cf_server_response_capacity cf =? 0) then Err WL_ERR_INVALID_ARG
  else if (cf_server_pending_timeout cf >=? 2147483648) || (cf_server_cache_ttl cf >=? 2147483648)
  then Err WL_ERR_INVALID_ARG
  else if bool_decide (is_Some (unknown_policy (cf_server_cache_policy cf))) then Err WL_ERR_INVALID_ARG
  else take_regions
    [(alignof_pending_slot, cf_server_pending_slot_count cf, sizeof_pending_slot);
     (alignof_cache_slot, cf_server_cache_slot_count cf, sizeof_cache_slot);
     (1, cf_server_cache_slot_count cf, cf_server_response_capacity cf)] c.

(** The alignments of the types that have a region. *)
Definition layout_alignments (cf : fci_device_runtime_config_t) : list Z :=
  map alignof latests ++
  (if cf_client_enabled cf =? 0 then [] else [alignof_client_slot]) ++
  (if cf_server_enabled cf =? 0 then [] else [alignof_pending_slot; alignof_cache_slot]).

(** [fci_device_runtime_layout] for storage of [size] bytes. *)
Definition fci_device_runtime_layout (cf : fci_device_runtime_config_t) (size : Z)
    : res wl_result runtime_layout :=
  '(latest, c) ← latest_regions latests (cf_generation cf) {| cu_size := size; cu_offset := 0 |};
  if negb (bool_decide (fci_device_runtime_roles_valid cf = WL_OK)) then Err WL_ERR_NOT_SUPPORTED
  else if (cf_client_enabled cf >? 1) || (cf_server_enabled cf >? 1) then Err WL_ERR_INVALID_ARG
  else
    '(client, c) ← client_regions cf c;
    '(server, c) ← server_regions cf c;
    Ok {| lo_latest := latest; lo_client := client; lo_server := server; lo_size := cu_offset c;
          lo_alignment := widest (layout_alignments cf) |}.

(** [fci_device_runtime_requirements]: the size and the alignment. *)
Definition fci_device_runtime_requirements (cf : fci_device_runtime_config_t) : res wl_result (Z * Z) :=
  l ← fci_device_runtime_layout cf SIZE_MAX; Ok (lo_size l, lo_alignment l).

(** ** Initialisation *)

(** [fci_device_runtime_storage_t]: no address where [data] is null. *)
Record runtime_storage := { st_data : option Z; st_size : Z }.

Variable sizeof_instance : Z.

(** The storage and the instance overlap. *)
Definition overlaps (instance storage need : Z) : bool :=
  ((storage <=? instance) && (instance - storage <? need)) ||
  ((instance <? storage) && (storage - instance <? sizeof_instance)).

Inductive init_issue :=
| FCI_DEVICE_RUNTIME_INIT_OK | FCI_DEVICE_RUNTIME_INIT_NULL_ARGUMENT
| FCI_DEVICE_RUNTIME_INIT_ROLE_ENABLE | FCI_DEVICE_RUNTIME_INIT_RETAINED_CAPACITY
| FCI_DEVICE_RUNTIME_INIT_RPC_CLIENT_CAPACITY | FCI_DEVICE_RUNTIME_INIT_RPC_SERVER_CAPACITY
| FCI_DEVICE_RUNTIME_INIT_RPC_TIMEOUT | FCI_DEVICE_RUNTIME_INIT_RPC_CACHE_POLICY
| FCI_DEVICE_RUNTIME_INIT_LAYOUT_OVERFLOW | FCI_DEVICE_RUNTIME_INIT_STORAGE_TOO_SMALL
| FCI_DEVICE_RUNTIME_INIT_STORAGE_NULL | FCI_DEVICE_RUNTIME_INIT_STORAGE_ALIGNMENT
| FCI_DEVICE_RUNTIME_INIT_STORAGE_OVERLAP | FCI_DEVICE_RUNTIME_INIT_COMPONENT.

(** [fci_device_runtime_init_issue_str]. *)
Definition fci_device_runtime_init_issue_str (issue : init_issue) : string :=
  match issue with
  | FCI_DEVICE_RUNTIME_INIT_OK => "ok"
  | FCI_DEVICE_RUNTIME_INIT_NULL_ARGUMENT => "null argument"
  | FCI_DEVICE_RUNTIME_INIT_ROLE_ENABLE => "role enable must be zero or one"
  | FCI_DEVICE_RUNTIME_INIT_RETAINED_CAPACITY => "retained capacity is zero"
  | FCI_DEVICE_RUNTIME_INIT_RPC_CLIENT_CAPACITY => "RPC client capacity is zero"
  | FCI_DEVICE_RUNTIME_INIT_RPC_SERVER_CAPACITY => "RPC server capacity is zero"
  | FCI_DEVICE_RUNTIME_INIT_RPC_TIMEOUT => "RPC timeout exceeds wrap-safe range"
  | FCI_DEVICE_RUNTIME_INIT_RPC_CACHE_POLICY => "unknown RPC cache policy"
  | FCI_DEVICE_RUNTIME_INIT_LAYOUT_OVERFLOW => "runtime layout size overflow"
  | FCI_DEVICE_RUNTIME_INIT_STORAGE_TOO_SMALL => "runtime storage is too small"
  | FCI_DEVICE_RUNTIME_INIT_STORAGE_NULL => "runtime storage data is null"
  | FCI_DEVICE_RUNTIME_INIT_STORAGE_ALIGNMENT => "runtime storage is misaligned"
  | FCI_DEVICE_RUNTIME_INIT_STORAGE_OVERLAP => "runtime storage overlaps the instance"
  | FCI_DEVICE_RUNTIME_INIT_COMPONENT => "runtime component initialization failed"
  end%string.

(** [fci_device_runtime_init_diagnostic_t], without the name of the field. *)
Record init_diagnostic := { dg_issue : init_issue; dg_required : Z; dg_provided : Z }.
Definition diagnostic0 : init_diagnostic :=
  {| dg_issue := FCI_DEVICE_RUNTIME_INIT_OK; dg_required := 0; dg_provided := 0 |}.

(** [fci_device_runtime_init_validate]: the requirements, or the failure with its
    diagnostic. *)
Definition fci_device_runtime_init_validate (instance : Z) (cf : fci_device_runtime_config_t)
    (st : runtime_storage) : res (wl_result * init_diagnostic) (Z * Z) :=
  let fail issue required provided result :=
    Err (result, {| dg_issue := issue; dg_required := required; dg_provided := provided |}) in
  let client := negb (cf_client_enabled cf =? 0) in
  let server := negb (cf_server_enabled cf =? 0) in
  if negb (bool_decide (fci_device_runtime_roles_valid cf = WL_OK)) then
    fail FCI_DEVICE_RUNTIME_INIT_ROLE_ENABLE 0 1 WL_ERR_NOT_SUPPORTED
  else if cf_client_enabled cf >? 1 then
    fail FCI_DEVICE_RUNTIME_INIT_ROLE_ENABLE 1 (cf_client_enabled cf) WL_ERR_INVALID_ARG
  else if cf_server_enabled cf >? 1 then
    fail FCI_DEVICE_RUNTIME_INIT_ROLE_ENABLE 1 (cf_server_enabled cf) WL_ERR_INVALID_ARG
  else if client && (cf_client_slot_count cf =? 0) then
    fail FCI_DEVICE_RUNTIME_INIT_RPC_CLIENT_CAPACITY 1 0 WL_ERR_INVALID_ARG
  else if client && (cf_client_response_capacity cf =? 0) then
    fail FCI_DEVICE_RUNTIME_INIT_RPC_CLIENT_CAPACITY 1 0 WL_ERR_INVALID_ARG
  else if server && (cf_server_pending_slot_count cf =? 0) then
    fail FCI_DEVICE_RUNTIME_INIT_RPC_SERVER_CAPACITY 1 0 WL_ERR_INVALID_ARG
  else if server && (cf_server_cache_slot_count cf =? 0) then
    fail FCI_DEVICE_RUNTIME_INIT_RPC_SERVER_CAPACITY 1 0 WL_ERR_INVALID_ARG
  else if server && (cf_server_response_capacity cf =? 0) then
    fail FCI_DEVICE_RUNTIME_INIT_RPC_SERVER_CAPACITY 1 0 WL_ERR_INVALID_ARG
  else if server && (cf_server_pending_timeout cf >=? 2147483648) then
    fail FCI_DEVICE_RUNTIME_INIT_RPC_TIMEOUT 2147483647 (cf_server_pending_timeout cf) WL_ERR_INVALID_ARG
  else if server && (cf_server_cache_ttl cf >=? 2147483648) then
    fail FCI_DEVICE_RUNTIME_INIT_RPC_TIMEOUT 2147483647 (cf_server_cache_ttl cf) WL_ERR_INVALID_ARG
  else if server && bool_decide (is_Some (unknown_policy (cf_server_cache_policy cf))) then
    fail FCI_DEVICE_RUNTIME_INIT_RPC_CACHE_POLICY 0 (default 0 (unknown_policy (cf_server_cache_policy cf)))
      WL_ERR_INVALID_ARG
  else
    match fci_device_runtime_requirements cf with
    | Err result => fail FCI_DEVICE_RUNTIME_INIT_LAYOUT_OVERFLOW 0 0 result
    | Ok (need, alignment) =>
        if st_size st <? need then
          fail FCI_DEVICE_RUNTIME_INIT_STORAGE_TOO_SMALL need (st_size st) WL_ERR_BUF_TOO_SMALL
        else if need =? 0 then Ok (need, alignment)
        else
          match st_data st with
          | None => fail FCI_DEVICE_RUNTIME_INIT_STORAGE_NULL need 0 WL_ERR_INVALID_ARG
          | Some data =>
              if negb (Z.land data (alignment - 1) =? 0) then
                fail FCI_DEVICE_RUNTIME_INIT_STORAGE_ALIGNMENT alignment (Z.land data (alignment - 1))
                  WL_ERR_INVALID_ARG
              else if overlaps instance data need then
                fail FCI_DEVICE_RUNTIME_INIT_STORAGE_OVERLAP need (st_size st) WL_ERR_INVALID_ARG
              else Ok (need, alignment)
          end
    end.

(** The runtime that [init] makes of the configuration, at the address of the
    instance; the client's components are initialised where it is enabled. *)
Definition runtime_of (instance : Z) (cf : fci_device_runtime_config_t) : fci_device_runtime_t :=
  let client := negb (cf_client_enabled cf =? 0) in
  {| rn_self := instance; rn_incarnation := 0; rn_latest := fun _ => true; rn_client := client;
     rn_server := false; rn_async := false;
     rn_encode_scratch := client || negb (cf_server_enabled cf =? 0);
     rn_peer_observation := None; rn_retiring_tx := 0; rn_bulk_handler := cf_bulk_handler cf;
     rn_bulk_scratch := Some [];
     rn_response_scratch := fun _ => if client then Some [] else None |}.

(** The instance that [memset] leaves. *)
Definition runtime0 (instance : Z) : fci_device_runtime_t :=
  {| rn_self := instance; rn_incarnation := 0; rn_latest := fun _ => false; rn_client := false;
     rn_server := false; rn_async := false; rn_encode_scratch := false; rn_peer_observation := None;
     rn_retiring_tx := 0; rn_bulk_handler := false; rn_bulk_scratch := None;
     rn_response_scratch := fun _ => None |}.

(** Initialising the cells in their regions, from line 581 on. *)
Fixpoint init_latests (base : Z) (generation : latest -> Z) (l : list (latest * region)) : rtp wl_result :=
  match l with
  | [] => mret WL_OK
  | (k, r) :: l =>
      match latest_requirements k (generation k) with
      | Err result => mret result
      | Ok need =>
          result ← call (Wl_latest_init k (base + rg_offset r) need (generation k));
          if decide (result = WL_OK) then init_latests base generation l else mret result
      end
  end.

(** [fci_device_runtime_init]: the result and the runtime of the instance, which
    is [old] before; it is cleared when the storage is accepted, and again when a
    component fails. *)
Definition fci_device_runtime_init (instance : Z) (cf : fci_device_runtime_config_t) (st : runtime_storage)
    (old : fci_device_runtime_t) : rtp (wl_result * fci_device_runtime_t) :=
  match fci_device_runtime_requirements cf with
  | Err result => mret (result, old)
  | Ok (need, alignment) =>
      let base := default 0 (st_data st) in
      if st_size st <? need then mret (WL_ERR_BUF_TOO_SMALL, old)
      else if negb (need =? 0) &&
        (negb (bool_decide (is_Some (st_data st))) || negb (Z.land base (alignment - 1) =? 0) ||
         overlaps instance base need)
      then mret (WL_ERR_INVALID_ARG, old)
      else
        match fci_device_runtime_layout cf (st_size st) with
        | Err result => mret (result, old)
        | Ok l =>
            result ← init_latests base (cf_generation cf) (zip latests (lo_latest l));
            if negb (bool_decide (result = WL_OK)) then mret (result, runtime0 instance)
            else
              match lo_client l with
              | [slots; responses] =>
                  result ← call (Wl_rpc_client_init (base + rg_offset slots) (cf_client_slot_count cf)
                    (base + rg_offset responses) (rg_size responses) (cf_client_response_capacity cf)
                    (cf_client_next_operation_id cf));
                  mret (if decide (result = WL_RPC_OK) then (WL_OK, runtime_of instance cf)
                        else (WL_ERR_INVALID_ARG, runtime0 instance))
              | _ => mret (WL_OK, runtime_of instance cf)
              end
        end
  end.

(** [fci_device_runtime_init_checked]. *)
Definition fci_device_runtime_init_checked (instance : Z) (cf : fci_device_runtime_config_t)
    (st : runtime_storage) (old : fci_device_runtime_t)
    : rtp (wl_result * init_diagnostic * fci_device_runtime_t) :=
  match fci_device_runtime_init_validate instance cf st with
  | Err failure => mret (failure, old)
  | Ok _ =>
      '(result, rt) ← fci_device_runtime_init instance cf st old;
      mret (result,
            if decide (result = WL_OK) then diagnostic0
            else {| dg_issue := FCI_DEVICE_RUNTIME_INIT_COMPONENT; dg_required := 0; dg_provided := 0 |}, rt)
  end.
End layout.
