(* ===== verification/EndpointInit.v ===== *)
(** * Initialising, creating and destroying the endpoint

    [generated/wirelink/host/fci_device_runtime.h], lines 1995-2264: the default
    configuration, the initialisation of an endpoint in storage of its own, and
    the endpoints that an allocator holds. *)

From S2P Require Import Prelude WlcWire WlcSchema WlcCodec FciMessages DeviceTypes Endpoint EndpointOps FciRpc Prog RuntimeCalls ManagedRpc RuntimeService RuntimeDispatch RpcEndpoint RuntimeInit.

(** ** Configurations *)

Inductive wl_envelope := WL_ENVELOPE_COBS_STREAM | WL_ENVELOPE_OTHER.
#[global] Instance wl_envelope_eq_dec : EqDecision wl_envelope.
Proof. solve_decision. Defined.
Inductive wl_integrity := WL_INTEGRITY_CRC32C | WL_INTEGRITY_NONE | WL_INTEGRITY_OTHER.

(** [wl_config_t], as far as the program sets it. *)
Record wl_config_t := {
  lc_max_payload_len : Z;
  lc_envelope : wl_envelope;
  lc_integrity : wl_integrity;
  lc_ack_timeout_ms : Z;
  lc_max_retries : Z;
  lc_session_id : Z
}.

(** [fci_device_endpoint_config_t]; [ec_clock], [ec_on_bulk_status],
    [ec_on_response_terminal] and [ec_on_result] are whether the function is there. *)
Record fci_device_endpoint_config_t := {
  ec_link : wl_config_t;
  ec_clock : bool;
  ec_advanced : fci_device_runtime_config_t;
  ec_on_bulk_status : bool;
  ec_on_response_terminal : bool;
  ec_event_budget : Z;
  ec_on_result : bool
}.

Definition FCI_DEVICE_ENDPOINT_MAX_PAYLOAD : Z := 2048.
Definition FCI_DEVICE_ENDPOINT_RPC_CAPACITY : Z := 4.
Definition UINT64_MAX : Z := 2 ^ 64 - 1.

(** [fci_device_endpoint_config_defaults] with a clock, or without one. *)
Definition fci_device_endpoint_config_defaults (clock : bool) : fci_device_endpoint_config_t :=
  let advanced := fci_device_runtime_config_defaults in
  {| ec_link :=
       {| lc_max_payload_len := FCI_DEVICE_ENDPOINT_MAX_PAYLOAD; lc_envelope := WL_ENVELOPE_COBS_STREAM;
          lc_integrity := WL_INTEGRITY_CRC32C; lc_ack_timeout_ms := 100; lc_max_retries := 4;
          lc_session_id := 0 |};
     ec_clock := clock;
     ec_advanced :=
       {| cf_generation := cf_generation advanced; cf_client_enabled := 1;
          cf_client_slot_count := FCI_DEVICE_ENDPOINT_RPC_CAPACITY;
          cf_client_response_capacity := cf_client_response_capacity advanced;
          cf_client_next_operation_id := cf_client_next_operation_id advanced;
          cf_server_enabled := cf_server_enabled advanced;
          cf_server_pending_slot_count := FCI_DEVICE_ENDPOINT_RPC_CAPACITY;
          cf_server_cache_slot_count := FCI_DEVICE_ENDPOINT_RPC_CAPACITY;
          cf_server_response_capacity := cf_server_response_capacity advanced;
          cf_server_pending_timeout := 1000; cf_server_cache_ttl := 10000;
          cf_server_cache_policy := WL_RPC_CACHE_EVICT_OLDEST;
          cf_bulk_handler := cf_bulk_handler advanced;
          cf_request_handler := cf_request_handler advanced |};
     ec_on_bulk_status := false; ec_on_response_terminal := false; ec_event_budget := 16;
     ec_on_result := false |}.

(** The handler of bulk status is in one of two places. *)
Definition with_bulk_handler (cf : fci_device_runtime_config_t) : fci_device_runtime_config_t :=
  {| cf_generation := cf_generation cf; cf_client_enabled := cf_client_enabled cf;
     cf_client_slot_count := cf_client_slot_count cf;
     cf_client_response_capacity := cf_client_response_capacity cf;
     cf_client_next_operation_id := cf_client_next_operation_id cf;
     cf_server_enabled := cf_server_enabled cf;
     cf_server_pending_slot_count := cf_server_pending_slot_count cf;
     cf_server_cache_slot_count := cf_server_cache_slot_count cf;
     cf_server_response_capacity := cf_server_response_capacity cf;
     cf_server_pending_timeout := cf_server_pending_timeout cf;
     cf_server_cache_ttl := cf_server_cache_ttl cf; cf_server_cache_policy := cf_server_cache_policy cf;
     cf_bulk_handler := true; cf_request_handler := cf_request_handler cf |}.

(** ** The endpoint in its storage

    [fci_device_endpoint_t] with the members that only initialising and
    destroying use; [eo_allocated] is whether an allocator holds it. *)
Record endpoint_object := {
  eo_endpoint : fci_device_endpoint_t;
  eo_previous_session : Z;
  eo_allocated : bool
}.

Definition set_endpoint (e : fci_device_endpoint_t) (o : endpoint_object) : endpoint_object :=
  {| eo_endpoint := e; eo_previous_session := eo_previous_session o; eo_allocated := eo_allocated o |}.

(** Zeroed storage, at an address. *)
Definition endpoint0 (address instance : Z) : fci_device_endpoint_t :=
  {| en_self := address; en_stepping := false; en_closing := false; en_sync_waiting := false;
     en_incarnation := 0; en_event_budget := 0; en_runtime := runtime0 instance;
     en_last_service_result := WL_RPC_OK; en_last_service := service0; en_result := result0;
     en_on_result := false; en_completion := completion0; en_value := []; en_frames := fun _ => None |}.
Definition object0 (address instance : Z) : endpoint_object :=
  {| eo_endpoint := endpoint0 address instance; eo_previous_session := 0; eo_allocated := false |}.

Definition with_incarnation (n : Z) (e : fci_device_endpoint_t) : fci_device_endpoint_t :=
  {| en_self := en_self e; en_stepping := en_stepping e; en_closing := en_closing e;
     en_sync_waiting := en_sync_waiting e; en_incarnation := n; en_event_budget := en_event_budget e;
     en_runtime := en_runtime e; en_last_service_result := en_last_service_result e;
     en_last_service := en_last_service e; en_result := en_result e; en_on_result := en_on_result e;
     en_completion := en_completion e; en_value := en_value e; en_frames := en_frames e |}.
Definition with_settings (on_result : bool) (budget : Z) (e : fci_device_endpoint_t)
    : fci_device_endpoint_t :=
  {| en_self := en_self e; en_stepping := en_stepping e; en_closing := en_closing e;
     en_sync_waiting := en_sync_waiting e; en_incarnation := en_incarnation e; en_event_budget := budget;
     en_runtime := en_runtime e; en_last_service_result := en_last_service_result e;
     en_last_service := en_last_service e; en_result := result0; en_on_result := on_result;
     en_completion := en_completion e; en_value := en_value e; en_frames := en_frames e |}.

Definition set_incarnation (n : Z) (rt : fci_device_runtime_t) : fci_device_runtime_t :=
  {| rn_self := rn_self rt; rn_incarnation := n; rn_latest := rn_latest rt; rn_client := rn_client rt;
     rn_server := rn_server rt; rn_async := rn_async rt; rn_encode_scratch := rn_encode_scratch rt;
     rn_peer_observation := rn_peer_observation rt; rn_retiring_tx := rn_retiring_tx rt;
     rn_bulk_handler := rn_bulk_handler rt; rn_bulk_scratch := rn_bulk_scratch rt;
     rn_response_scratch := rn_response_scratch rt |}.
Definition set_async (rt : fci_device_runtime_t) : fci_device_runtime_t :=
  {| rn_self := rn_self rt; rn_incarnation := rn_incarnation rt; rn_latest := rn_latest rt;
     rn_client := rn_client rt; rn_server := rn_server rt; rn_async := true;
     rn_encode_scratch := rn_encode_scratch rt; rn_peer_observation := rn_peer_observation rt;
     rn_retiring_tx := rn_retiring_tx rt; rn_bulk_handler := rn_bulk_handler rt;
     rn_bulk_scratch := rn_bulk_scratch rt; rn_response_scratch := rn_response_scratch rt |}.

Section init.
Variable alignof : latest -> Z.
Variable sizeof_client_slot alignof_client_slot : Z.
Variable sizeof_pending_slot alignof_pending_slot : Z.
Variable sizeof_cache_slot alignof_cache_slot : Z.
Variable latest_requirements : latest -> Z -> res wl_result Z.
Variable sizeof_instance : Z.

(** The endpoint's size and alignment, the offsets of its instance and arena, and
    the arena's size. *)
Variable sizeof_endpoint alignof_endpoint offset_instance offset_arena arena_size : Z.

Abbreviation runtime_init :=
  (fci_device_runtime_init alignof sizeof_client_slot alignof_client_slot sizeof_pending_slot
     alignof_pending_slot sizeof_cache_slot alignof_cache_slot latest_requirements sizeof_instance).

(** The checks that end a call before it changes anything, lines 2070-2111; the
    configuration of the runtime otherwise. *)
Definition config_checked (cfg : fci_device_endpoint_config_t) (linked : bool) (e : fci_device_endpoint_t)
    : res wl_result fci_device_runtime_config_t :=
  if linked then Err WL_ERR_INVALID_STATE
  else if negb (ec_clock cfg) || negb (lc_session_id (ec_link cfg) =? 0) then Err WL_ERR_INVALID_ARG
  else if negb (bool_decide (lc_envelope (ec_link cfg) = WL_ENVELOPE_COBS_STREAM)) then
    Err WL_ERR_NOT_SUPPORTED
  else if ec_on_bulk_status cfg && cf_bulk_handler (ec_advanced cfg) then Err WL_ERR_INVALID_ARG
  else
    let cf := if ec_on_bulk_status cfg then with_bulk_handler (ec_advanced cfg) else ec_advanced cfg in
    if negb (cf_server_enabled cf =? 0) then Err WL_ERR_NOT_SUPPORTED
    else if existsb (fun c => cf_request_handler cf (rpc_request_id c)) (managed_rpcs ++ legacy_rpcs)
    then Err WL_ERR_NOT_SUPPORTED
    else if en_closing e then Err WL_ERR_REENTRANT
    else if negb (cf_client_enabled cf =? 0) &&
            (cf_client_slot_count cf >? FCI_DEVICE_ENDPOINT_RPC_CAPACITY) then Err WL_ERR_INVALID_ARG
    else Ok cf.

(** The endpoint after [fci_device_runtime_pump_init]. *)
Definition pump_init (e : fci_device_endpoint_t) : fci_device_endpoint_t :=
  set_service e WL_RPC_OK service0.

(** Lines 2113-2169: the endpoint of a configuration that is accepted. *)
Definition init_accepted (cfg : fci_device_endpoint_config_t) (cf : fci_device_runtime_config_t)
    (o : endpoint_object) : rtp (wl_result * endpoint_object) :=
  let e := eo_endpoint o in
  '(result, session) ← call (Wl_session_next (eo_previous_session o));
  if negb (bool_decide (result = WL_OK)) then mret (result, o)
  else if en_incarnation e =? UINT64_MAX then mret (WL_ERR_INVALID_STATE, o)
  else
    let e := with_incarnation (en_incarnation e + 1) e in
    '(result, rt) ← runtime_init (en_self e + offset_instance) cf
      {| st_data := Some (en_self e + offset_arena); st_size := arena_size |} (en_runtime e);
    if negb (bool_decide (result = WL_OK)) then mret (result, set_endpoint (set_runtime e rt) o)
    else
      let e := set_runtime e (set_incarnation (en_incarnation e) rt) in
      if ec_on_response_terminal cfg then mret (WL_ERR_INVALID_ARG, set_endpoint e o)
      else
        let e := pump_init e in
        result ← call (Wl_endpoint_init session);
        if negb (bool_decide (result = WL_OK)) then mret (result, set_endpoint e o)
        else
          let made e :=
            {| eo_endpoint := e; eo_previous_session := session; eo_allocated := eo_allocated o |} in
          if cf_client_enabled cf =? 0 then
            mret (WL_OK, made (with_settings (ec_on_result cfg) (ec_event_budget cfg) e))
          else
            result ← call (Wl_rpc_async_init (cf_client_slot_count cf) (en_incarnation e));
            if negb (bool_decide (result = WL_OK)) then
              call Wl_endpoint_close ;; mret (result, made e)
            else
              mret (WL_OK, made (with_settings (ec_on_result cfg) (ec_event_budget cfg)
                                   (set_runtime e (set_async (en_runtime e))))).

(** [fci_device_endpoint_init_config]. *)
Definition fci_device_endpoint_init_config (cfg : fci_device_endpoint_config_t) (o : endpoint_object)
    : rtp (wl_result * endpoint_object) :=
  if ec_event_budget cfg =? 0 then mret (WL_ERR_INVALID_ARG, o)
  else if en_stepping (eo_endpoint o) || en_closing (eo_endpoint o) then mret (WL_ERR_REENTRANT, o)
  else
    linked ← call Wl_endpoint_link;
    match config_checked cfg linked (eo_endpoint o) with
    | Err result => mret (result, o)
    | Ok cf => init_accepted cfg cf o
    end.

(** [fci_device_endpoint_init]. *)
Definition fci_device_endpoint_init (clock : bool) (o : endpoint_object) : rtp (wl_result * endpoint_object) :=
  fci_device_endpoint_init_config (fci_device_endpoint_config_defaults clock) o.

(** ** Allocated endpoints *)

Variable wl_rpc_async_completion : wl_rpc_client_result_t -> rpc_completion.

Definition deallocate (address : Z) : rtp unit :=
  call (Deallocate address sizeof_endpoint alignof_endpoint).

(** [fci_device_endpoint_create]. *)
Definition fci_device_endpoint_create (cfg : fci_device_endpoint_config_t) : rtp (res wl_result endpoint_object) :=
  allocated ← call (Allocate sizeof_endpoint alignof_endpoint);
  match allocated with
  | None => mret (Err WL_ERR_NO_MEM)
  | Some address =>
      if negb (address mod alignof_endpoint =? 0) then
        deallocate address ;; mret (Err WL_ERR_INVALID_ARG)
      else
        '(result, o) ← fci_device_endpoint_init_config cfg (object0 address (address + offset_instance));
        if negb (bool_decide (result = WL_OK)) then
          fci_device_endpoint_close wl_rpc_async_completion (eo_endpoint o) ;;
          deallocate address ;;
          mret (Err result)
        else
          mret (Ok {| eo_endpoint := eo_endpoint o; eo_previous_session := eo_previous_session o;
                      eo_allocated := true |})
  end.

(** [fci_device_endpoint_destroy]; the owner's pointer after it. *)
Definition fci_device_endpoint_destroy (owner : option endpoint_object)
    : rtp (wl_result * option endpoint_object) :=
  match owner with
  | None => mret (WL_OK, None)
  | Some o =>
      if negb (eo_allocated o) then mret (WL_ERR_INVALID_STATE, owner)
      else
        '(result, e) ← fci_device_endpoint_close wl_rpc_async_completion (eo_endpoint o);
        if negb (bool_decide (result = WL_OK)) then mret (result, Some (set_endpoint e o))
        else deallocate (en_self e) ;; mret (WL_OK, None)
  end.
End init.
