(* ===== verification/LayoutProps.v ===== *)
(** * The layout of the storage

    The regions that [fci_device_runtime_layout] hands out are aligned, apart and
    within the storage; the requirements that it states are exactly enough; and
    an initialisation that the validation accepts fails only in a component. *)

From Stdlib Require Import Sorted.
From S2P Require Import Prelude WlcWire WlcSchema WlcCodec FciMessages DeviceTypes Endpoint EndpointOps FciRpc Prog RuntimeCalls ManagedRpc RuntimeService RuntimeDispatch RpcEndpoint RuntimeInit RuntimeSamples.

(** ** Powers of two *)

Lemma power_of_two a : 0 < a -> Z.land a (a - 1) = 0 -> exists k, 0 <= k /\ a = 2 ^ k.
Proof.
  intros Ha Hland. exists (Z.log2 a). split; [apply Z.log2_nonneg|].
  destruct (Z.log2_spec a Ha) as [Hlo Hhi]. destruct (Z.eq_dec a (2 ^ Z.log2 a)) as [|Hne]; [done|].
  assert (Z.log2 (a - 1) = Z.log2 a) as Hlog by (apply Z.log2_unique; [apply Z.log2_nonneg|lia]).
  assert (Z.testbit (Z.land a (a - 1)) (Z.log2 a) = true) as Hbit.
  { rewrite Z.land_spec, Z.bit_log2 by done. rewrite <- Hlog. apply Z.bit_log2.
    pose proof (Z.pow_pos_nonneg 2 (Z.log2 a) ltac:(lia) (Z.log2_nonneg a)). lia. }
  rewrite Hland, Z.bits_0 in Hbit. done.
Qed.

Lemma align_up k x : 0 <= k -> Z.land x (Z.lnot (2 ^ k - 1)) = x / 2 ^ k * 2 ^ k.
Proof.
  intros Hk. replace (2 ^ k - 1) with (Z.ones k) by (rewrite Z.ones_equiv; lia).
  rewrite <- Z.ldiff_land, Z.ldiff_ones_r by done.
  by rewrite Z.shiftl_mul_pow2, Z.shiftr_div_pow2 by done.
Qed.

Lemma aligned_spec k x : 0 <= k ->
  let y := Z.land (x + (2 ^ k - 1)) (Z.lnot (2 ^ k - 1)) in
  x <= y < x + 2 ^ k /\ y mod 2 ^ k = 0.
Proof.
  intros Hk. cbn zeta. rewrite align_up by done.
  pose proof (Z.pow_pos_nonneg 2 k ltac:(lia) Hk) as Hp.
  split; [|by apply Z.mod_mul; lia].
  pose proof (Z.div_mod (x + (2 ^ k - 1)) (2 ^ k) ltac:(lia)).
  pose proof (Z.mod_pos_bound (x + (2 ^ k - 1)) (2 ^ k) Hp). lia.
Qed.

(** ** A region *)

Lemma region_spec a n s c r c' :
  0 < a -> 0 <= n -> 0 <= s ->
  fci_device_runtime_storage_region a n s c = Ok (r, c') ->
  (exists k, 0 <= k /\ a = 2 ^ k) /\ rg_alignment r = a /\ rg_size r = n * s /\
  cu_offset c <= rg_offset r < cu_offset c + a /\ rg_offset r mod a = 0 /\
  cu_offset c' = rg_offset r + rg_size r /\ cu_offset c' <= cu_size c /\ cu_size c' = cu_size c.
Proof.
  intros Ha Hn Hs. unfold fci_device_runtime_storage_region.
  destruct (Z.eqb_spec a 0); [lia|]. cbn [orb].
  destruct (Z.eqb_spec (Z.land a (a - 1)) 0) as [Hl|]; [|done]. cbn [negb].
  destruct (negb (n =? 0) && _); [done|].
  destruct (cu_offset c >? _); [done|]. destruct (n * s >? _); [done|].
  destruct (Z.gtb_spec (Z.land (cu_offset c + (a - 1)) (Z.lnot (a - 1)) + n * s) (cu_size c)) as [|Hfit]; [done|].
  intros [= <- <-]. destruct (power_of_two a Ha Hl) as (k & Hk & ->).
  destruct (aligned_spec k (cu_offset c) Hk) as [Hy Hm]. cbn.
  split; [by exists k|]. split; [done|]. split; [done|]. split; [done|]. split; [done|]. split; [done|]. lia.
Qed.

(** The same region in storage of another size. *)
Lemma region_resize a n s offset r c' :
  fci_device_runtime_storage_region a n s {| cu_size := SIZE_MAX; cu_offset := offset |} = Ok (r, c') ->
  forall size, size <= SIZE_MAX ->
  fci_device_runtime_storage_region a n s {| cu_size := size; cu_offset := offset |} =
    if size <? cu_offset c' then Err WL_ERR_BUF_TOO_SMALL
    else Ok (r, {| cu_size := size; cu_offset := cu_offset c' |}).
Proof.
  unfold fci_device_runtime_storage_region. cbn [cu_offset cu_size].
  destruct (_ || _); [done|]. destruct (_ && _); [done|].
  destruct (offset >? _); [done|]. destruct (n * s >? _); [done|].
  destruct (_ >? SIZE_MAX); [done|]. intros [= <- <-] size' Hsize. cbn.
  rewrite Z.gtb_ltb. by destruct (size' <? _).
Qed.

(** ** A sequence of regions *)

(** Regions in order, each aligned, from one offset to another. *)
Fixpoint laid (from : Z) (rs : list region) (to : Z) : Prop :=
  match rs with
  | [] => from = to
  | r :: rs =>
      (exists k, 0 <= k /\ rg_alignment r = 2 ^ k) /\ 0 <= rg_size r /\
      from <= rg_offset r /\ rg_offset r mod rg_alignment r = 0 /\ laid (rg_offset r + rg_size r) rs to
  end.

Lemma laid_app a rs b rs' c : laid a rs b -> laid b rs' c -> laid a (rs ++ rs') c.
Proof.
  revert a. induction rs as [|r rs IH]; intros a; cbn; [by intros ->|].
  intros (? & ? & ? & ? & Hl) Hl'. do 4 (split; [done|]). by apply IH.
Qed.

Lemma laid_le a rs b : laid a rs b -> a <= b.
Proof.
  revert a. induction rs as [|r rs IH]; intros a; cbn; [lia|]. intros (_ & ? & ? & _ & Hl%IH). lia.
Qed.

Lemma laid_spec a rs b :
  laid a rs b ->
  Forall (fun r => a <= rg_offset r /\ rg_offset r mod rg_alignment r = 0 /\
    rg_offset r + rg_size r <= b) rs /\
  StronglySorted (fun r1 r2 => rg_offset r1 + rg_size r1 <= rg_offset r2) rs.
Proof.
  revert a. induction rs as [|r rs IH]; intros a; cbn; [repeat constructor|].
  intros (_ & Hs & Ha & Hm & Hl). pose proof (laid_le _ _ _ Hl) as Hle.
  destruct (IH _ Hl) as [Hf Hsort]. split.
  - constructor; [lia|]. eapply List.Forall_impl; [|exact Hf]. cbn. lia.
  - constructor; [done|]. eapply List.Forall_impl; [|exact Hf]. cbn. lia.
Qed.

(** What a step of the layout makes of storage: at full size it lays out
    regions; at any other size, those or too little. *)
Definition lays (step : cursor -> res wl_result (list region * cursor)) (offset : Z) (rs : list region)
    (offset' : Z) : Prop :=
  laid offset rs offset' /\
  forall size, offset <= size <= SIZE_MAX ->
  step {| cu_size := size; cu_offset := offset |} =
    if size <? offset' then Err WL_ERR_BUF_TOO_SMALL
    else Ok (rs, {| cu_size := size; cu_offset := offset' |}).

Lemma one_lays a n s offset r c' :
  0 < a -> 0 <= n -> 0 <= s ->
  fci_device_runtime_storage_region a n s {| cu_size := SIZE_MAX; cu_offset := offset |} = Ok (r, c') ->
  laid offset [r] (cu_offset c') /\ c' = {| cu_size := SIZE_MAX; cu_offset := cu_offset c' |} /\
  rg_alignment r = a.
Proof.
  intros Ha Hn Hs Hr. destruct (region_spec _ _ _ _ _ _ Ha Hn Hs Hr) as (Hp & Hal & Hsz & Ho & Hm & Ho' & _ & Hc).
  destruct c' as [size' offset']. cbn in *. subst size' offset'. split; [|done].
  split; [by rewrite Hal|]. split; [rewrite Hsz; nia|]. split; [lia|]. split; [by rewrite Hal|done].
Qed.

(** One region and the rest of the layout. *)
Lemma region_then_lays a n s offset r c' (rest : cursor -> res wl_result (list region * cursor)) rs offset' :
  0 < a -> 0 <= n -> 0 <= s ->
  fci_device_runtime_storage_region a n s {| cu_size := SIZE_MAX; cu_offset := offset |} = Ok (r, c') ->
  lays rest (cu_offset c') rs offset' ->
  lays (fun c => '(r, c) ← fci_device_runtime_storage_region a n s c; '(rs, c) ← rest c; Ok (r :: rs, c))
    offset (r :: rs) offset'.
Proof.
  intros Ha Hn Hs Hr [Hl Hrest]. destruct (one_lays _ _ _ _ _ _ Ha Hn Hs Hr) as (Hone & _ & _).
  pose proof (laid_app _ _ _ _ _ Hone Hl) as Hall. split; [exact Hall|].
  intros size Hsize. rewrite (region_resize _ _ _ _ _ _ Hr size ltac:(lia)).
  pose proof (laid_le _ _ _ Hl). pose proof (laid_le _ _ _ Hone).
  destruct (Z.ltb_spec size (cu_offset c')).
  - destruct (Z.ltb_spec size offset'); [done|lia].
  - cbn. rewrite Hrest by lia. by destruct (size <? offset').
Qed.

Definition sane (x : Z * Z * Z) : Prop := 0 < fst (fst x) /\ 0 <= snd (fst x) /\ 0 <= snd x.

Lemma take_regions_lays l : Forall sane l -> forall offset rs c',
  take_regions l {| cu_size := SIZE_MAX; cu_offset := offset |} = Ok (rs, c') ->
  lays (take_regions l) offset rs (cu_offset c') /\
  c' = {| cu_size := SIZE_MAX; cu_offset := cu_offset c' |} /\
  map rg_alignment rs = map (fun x => fst (fst x)) l.
Proof.
  induction 1 as [|[[a n] s] l (Ha & Hn & Hs) _ IH]; intros offset rs c'; cbn [take_regions].
  - intros [= <- <-]. split; [|done]. split; [done|]. intros size Hsize. cbn.
    by destruct (Z.ltb_spec size offset); [lia|].
  - cbn in Ha, Hn, Hs.
    destruct (fci_device_runtime_storage_region a n s _) as [[r c1]|] eqn:Hr; [|done]. cbn.
    destruct (one_lays _ _ _ _ _ _ Ha Hn Hs Hr) as (_ & Hc1 & Hal).
    destruct (take_regions l c1) as [[rs' c2]|] eqn:Hl; [|done]. intros [= <- <-].
    rewrite Hc1 in Hl. destruct (IH _ _ _ Hl) as (Hlays & Hc2 & Hals).
    split; [by eapply region_then_lays|]. split; [done|]. cbn. by rewrite Hal, Hals.
Qed.

Section layout.
Variable sizeof alignof : latest -> Z.
Variable sizeof_client_slot alignof_client_slot : Z.
Variable sizeof_pending_slot alignof_pending_slot : Z.
Variable sizeof_cache_slot alignof_cache_slot : Z.
Variable latest_requirements : latest -> Z -> res wl_result Z.
Variable sizeof_instance : Z.

(** Sizes and alignments of C types, and what the library asks for. *)
Hypothesis alignof_pos : forall k, 0 < alignof k.
Hypothesis slots_pos : 0 < alignof_client_slot /\ 0 < alignof_pending_slot /\ 0 < alignof_cache_slot.
Hypothesis slots_size : 0 <= sizeof_client_slot /\ 0 <= sizeof_pending_slot /\ 0 <= sizeof_cache_slot.
Hypothesis requirements_pos : forall k g need, latest_requirements k g = Ok need -> 0 <= need.

(** Counts and capacities are unsigned. *)
Definition config_unsigned (cf : fci_device_runtime_config_t) : Prop :=
  0 <= cf_client_slot_count cf /\ 0 <= cf_client_response_capacity cf /\
  0 <= cf_server_pending_slot_count cf /\ 0 <= cf_server_cache_slot_count cf /\
  0 <= cf_server_response_capacity cf.

Abbreviation layout :=
  (fci_device_runtime_layout alignof sizeof_client_slot alignof_client_slot sizeof_pending_slot
     alignof_pending_slot sizeof_cache_slot alignof_cache_slot latest_requirements).

Lemma latest_regions_lays ks generation offset rs c' :
  latest_regions alignof latest_requirements ks generation {| cu_size := SIZE_MAX; cu_offset := offset |} =
    Ok (rs, c') ->
  lays (latest_regions alignof latest_requirements ks generation) offset rs (cu_offset c') /\
  c' = {| cu_size := SIZE_MAX; cu_offset := cu_offset c' |} /\ map rg_alignment rs = map alignof ks.
Proof.
  revert offset rs c'. induction ks as [|k ks IH]; intros offset rs c'; cbn [latest_regions].
  - intros [= <- <-]. split; [|done]. split; [done|]. intros size Hsize. cbn.
    by destruct (Z.ltb_spec size offset); [lia|].
  - destruct (latest_requirements k (generation k)) as [need|] eqn:Hneed; [|done]. cbn.
    destruct (fci_device_runtime_storage_region (alignof k) 1 need _) as [[r c1]|] eqn:Hr; [|done]. cbn.
    pose proof (requirements_pos _ _ _ Hneed) as Hn.
    destruct (one_lays _ 1 _ _ _ _ (alignof_pos k) ltac:(lia) Hn Hr) as (_ & Hc1 & Hal).
    destruct (latest_regions _ _ ks generation c1) as [[rs' c2]|] eqn:Hl; [|done]. intros [= <- <-].
    rewrite Hc1 in Hl. destruct (IH _ _ _ Hl) as (Hlays & Hc2 & Hals).
    split; [|split; [done|cbn; by rewrite Hal, Hals]].
    pose proof (region_then_lays _ 1 _ _ _ _ _ _ _ (alignof_pos k) ltac:(lia) Hn Hr Hlays) as [H1 H2].
    split; [exact H1|]. exact H2.
Qed.

Lemma roles_no_server cf : fci_device_runtime_roles_valid cf = WL_OK -> cf_server_enabled cf = 0.
Proof. unfold fci_device_runtime_roles_valid. by destruct (Z.eqb_spec (cf_server_enabled cf) 0). Qed.

Lemma client_regions_lays cf offset rs c' :
  config_unsigned cf ->
  client_regions sizeof_client_slot alignof_client_slot cf {| cu_size := SIZE_MAX; cu_offset := offset |} =
    Ok (rs, c') ->
  lays (client_regions sizeof_client_slot alignof_client_slot cf) offset rs (cu_offset c') /\
  map rg_alignment rs = (if cf_client_enabled cf =? 0 then [] else [alignof_client_slot; 1]).
Proof.
  intros (Hc1 & Hc2 & _). unfold client_regions. destruct (cf_client_enabled cf =? 0).
  - intros [= <- <-]. split; [|done]. split; [done|]. intros size Hsize. cbn.
    by destruct (Z.ltb_spec size offset); [lia|].
  - destruct (_ || _); [done|]. intros Ht. destruct slots_pos as (Ha & _), slots_size as (Hs & _).
    destruct (take_regions_lays
      [(alignof_client_slot, cf_client_slot_count cf, sizeof_client_slot);
       (1, cf_client_slot_count cf, cf_client_response_capacity cf)]) with (2 := Ht) as (Hlays & _ & Hal); [|done].
    by repeat constructor.
Qed.

(** The layout at full size: where its regions lie, with which alignments, and
    what becomes of it in other storage. *)
Lemma layout_full cf l :
  config_unsigned cf -> layout cf SIZE_MAX = Ok l ->
  laid 0 (lo_regions l) (lo_size l) /\
  (forall size, 0 <= size <= SIZE_MAX ->
     layout cf size = if size <? lo_size l then Err WL_ERR_BUF_TOO_SMALL else Ok l) /\
  lo_alignment l = widest (map alignof latests ++ if cf_client_enabled cf =? 0 then [] else [alignof_client_slot]) /\
  map rg_alignment (lo_regions l) =
    map alignof latests ++ (if cf_client_enabled cf =? 0 then [] else [alignof_client_slot; 1]).
Proof.
  intros Hcf Hl. unfold fci_device_runtime_layout in *.
  destruct (latest_regions alignof latest_requirements latests (cf_generation cf) _) as [[rs1 c1]|] eqn:H1; [|done].
  destruct (latest_regions_lays _ _ _ _ _ H1) as ([Hlaid1 Hlays1] & Hcur1 & Hal1).
  change (Ok (rs1, c1) ≫= ?f) with (f (rs1, c1)) in Hl. cbv beta iota in Hl.
  destruct (bool_decide (fci_device_runtime_roles_valid cf = WL_OK)) eqn:Hroles; [|done].
  pose proof Hroles as Hserver. apply bool_decide_eq_true, roles_no_server in Hserver.
  change (negb true) with false in *. cbv iota in *.
  destruct ((cf_client_enabled cf >? 1) || (cf_server_enabled cf >? 1)) eqn:Hen; [done|].
  rewrite Hcur1 in Hl.
  destruct (client_regions _ _ cf {| cu_size := SIZE_MAX; cu_offset := cu_offset c1 |}) as [[rs2 c2]|] eqn:H2; [|done].
  destruct (client_regions_lays _ _ _ _ Hcf H2) as ([Hlaid2 Hlays2] & Hal2).
  assert (forall c, server_regions sizeof_pending_slot alignof_pending_slot sizeof_cache_slot alignof_cache_slot cf c
    = Ok ([], c)) as Hno by (intros c; unfold server_regions; by rewrite Hserver).
  change (Ok (rs2, c2) ≫= ?f) with (f (rs2, c2)) in Hl. cbv beta iota in Hl. rewrite Hno in Hl.
  change (Ok (?a, c2) ≫= ?f) with (f (a, c2)) in Hl. cbv beta iota in Hl. injection Hl as <-.
  unfold lo_regions. cbn [lo_latest lo_client lo_server lo_size lo_alignment]. rewrite app_nil_r.
  pose proof (laid_le _ _ _ Hlaid1) as Hle1. pose proof (laid_le _ _ _ Hlaid2) as Hle2.
  split; [by eapply laid_app|]. split; [|split; [unfold layout_alignments; by rewrite Hserver, app_nil_r|by rewrite map_app, Hal1, Hal2]].
  intros size Hsize. rewrite Hlays1 by lia.
  destruct (Z.ltb_spec size (cu_offset c1)); [by destruct (Z.ltb_spec size (cu_offset c2)); [|lia]|].
  change (Ok (rs1, ?c) ≫= ?f) with (f (rs1, c)). cbv beta iota. rewrite Hlays2 by lia.
  destruct (Z.ltb_spec size (cu_offset c2)); [done|].
  change (Ok (rs2, ?c) ≫= ?f) with (f (rs2, c)). cbv beta iota. by rewrite Hno.
Qed.

(** ** Alignment of addresses *)

Lemma widest_snoc l a : widest (l ++ [a]) = if widest l <? a then a else widest l.
Proof. unfold widest. by rewrite foldl_app. Qed.

Lemma widest_spec l :
  Forall (fun a => exists k, 0 <= k /\ a = 2 ^ k) l ->
  (exists k, 0 <= k /\ widest l = 2 ^ k) /\ Forall (fun a => a <= widest l) l.
Proof.
  induction l as [|a l IH] using rev_ind; intros Hf; [split; [by exists 0|constructor]|].
  apply Forall_app in Hf as [Hl Ha]. apply List.Forall_inv in Ha.
  destruct (IH Hl) as [Hk Hle]. rewrite widest_snoc.
  destruct (Z.ltb_spec (widest l) a); (split; [done|]); apply Forall_app; (split; [|repeat constructor; lia]).
  - eapply List.Forall_impl; [|exact Hle]. cbn. lia.
  - done.
Qed.

Lemma power_divides j k : 0 <= j -> 0 <= k -> 2 ^ j <= 2 ^ k -> (2 ^ j | 2 ^ k).
Proof.
  intros Hj Hk Hle. apply Z.pow_le_mono_r_iff in Hle; [|lia..].
  exists (2 ^ (k - j)). rewrite <- Z.pow_add_r by lia. f_equal. lia.
Qed.

(** An address aligned for the widest type is aligned for every one of them. *)
Lemma base_aligned base l a :
  Forall (fun a => exists k, 0 <= k /\ a = 2 ^ k) l -> In a l ->
  Z.land base (widest l - 1) = 0 -> base mod a = 0.
Proof.
  intros Hl Hin Hb. destruct (widest_spec l Hl) as [(k & Hk & Hw) Hle].
  rewrite List.Forall_forall in Hl, Hle. destruct (Hl a Hin) as (j & Hj & ->).
  specialize (Hle _ Hin). cbn in Hle. rewrite Hw in *.
  replace (2 ^ k - 1) with (Z.ones k) in Hb by (rewrite Z.ones_equiv; lia).
  rewrite Z.land_ones in Hb by done.
  destruct (power_divides j k Hj Hk Hle) as [q Hq].
  pose proof (Z.pow_pos_nonneg 2 j ltac:(lia) Hj).
  pose proof (Z.div_mod base (2 ^ k) ltac:(lia)) as Hdm. rewrite Hb, Hq in Hdm.
  rewrite Hdm. replace (q * 2 ^ j * (base / (q * 2 ^ j)) + 0) with (q * (base / (q * 2 ^ j)) * 2 ^ j) by lia.
  apply Z.mod_mul. lia.
Qed.

Lemma laid_powers a rs b : laid a rs b -> Forall (fun r => exists k, 0 <= k /\ rg_alignment r = 2 ^ k) rs.
Proof. revert a. induction rs as [|r rs IH]; intros a; cbn; [constructor|]. intros (? & _ & _ & _ & Hl). constructor; eauto. Qed.

Lemma layout_at_full cf size l :
  config_unsigned cf -> 0 <= size <= SIZE_MAX -> layout cf size = Ok l ->
  (exists l0, layout cf SIZE_MAX = Ok l0) -> layout cf SIZE_MAX = Ok l /\ lo_size l <= size.
Proof.
  intros Hcf Hsize Hl [l0 H0]. destruct (layout_full cf l0 Hcf H0) as (_ & Hs & _).
  rewrite Hs in Hl by done. destruct (Z.ltb_spec size (lo_size l0)); [done|].
  injection Hl as <-. done.
Qed.

(** C36: The regions of a layout are apart, aligned, and inside the storage.
    Whatever the sizes of the types, when the layout of a configuration is
    made, its regions follow one another without overlapping, from the start
    of the storage to a size that is at most the storage's; and when the storage
    starts at an address of the stated alignment, every region is at an address
    aligned for what it holds. *)
Theorem layout_fits cf size l :
  config_unsigned cf -> 0 <= size <= SIZE_MAX -> (exists l0, layout cf SIZE_MAX = Ok l0) ->
  layout cf size = Ok l ->
  lo_size l <= size /\
  Forall (fun r => 0 <= rg_offset r /\ rg_offset r mod rg_alignment r = 0 /\
    rg_offset r + rg_size r <= lo_size l) (lo_regions l) /\
  StronglySorted (fun r1 r2 => rg_offset r1 + rg_size r1 <= rg_offset r2) (lo_regions l) /\
  forall base, Z.land base (lo_alignment l - 1) = 0 ->
    Forall (fun r => (base + rg_offset r) mod rg_alignment r = 0) (lo_regions l).
Proof.
  intros Hcf Hsize Hex Hl. destruct (layout_at_full cf size l Hcf Hsize Hl Hex) as [Hfull Hle].
  destruct (layout_full cf l Hcf Hfull) as (Hlaid & _ & Hwide & Hals).
  destruct (laid_spec _ _ _ Hlaid) as [Hin Hsort].
  split; [done|]. split; [done|]. split; [done|]. intros base Hbase.
  pose proof (laid_powers _ _ _ Hlaid) as Hpow.
  assert (Forall (fun a => exists k, 0 <= k /\ a = 2 ^ k) (map rg_alignment (lo_regions l))) as Hpow'.
  { apply List.Forall_map. exact Hpow. }
  rewrite Hals in Hpow'.
  apply List.Forall_forall. intros r Hr. rewrite List.Forall_forall in Hin, Hpow.
  destruct (Hin r Hr) as (_ & Hm & _).
  assert (base mod rg_alignment r = 0) as Hb.
  { assert (In (rg_alignment r) (map alignof latests ++ (if cf_client_enabled cf =? 0 then [] else [alignof_client_slot; 1]))) as Ha.
    { rewrite <- Hals. by apply List.in_map. }
    destruct (cf_client_enabled cf =? 0); rewrite Hwide in Hbase.
    - by eapply base_aligned.
    - assert (Forall (fun a => exists k, 0 <= k /\ a = 2 ^ k) (map alignof latests ++ [alignof_client_slot])) as Hp.
      { apply Forall_app in Hpow' as [? Hp']. apply Forall_app; split; [done|].
        constructor; [by apply List.Forall_inv in Hp'|constructor]. }
      apply in_app_iff in Ha as [Ha|[<-|[<-|[]]]]; [| |by rewrite Z.mod_1_r].
      + eapply base_aligned; [exact Hp|apply in_app_iff; left; exact Ha|exact Hbase].
      + eapply base_aligned; [exact Hp|apply in_app_iff; right; left; reflexivity|exact Hbase]. }
  destruct (Hpow r Hr) as (k & Hk & Hpk). pose proof (Z.pow_pos_nonneg 2 k ltac:(lia) Hk).
  rewrite Z.add_mod by lia. rewrite Hb, Hm. by rewrite Z.mod_0_l by lia.
Qed.

(** The requirements are exactly what the layout needs: storage of the
    stated size, or more, gets the layout that the requirements were computed
    from; any less is too small, and said to be. *)
Theorem requirements_exact cf need alignment size :
  config_unsigned cf -> 0 <= size <= SIZE_MAX ->
  fci_device_runtime_requirements alignof sizeof_client_slot alignof_client_slot sizeof_pending_slot
    alignof_pending_slot sizeof_cache_slot alignof_cache_slot latest_requirements cf = Ok (need, alignment) ->
  (size < need -> layout cf size = Err WL_ERR_BUF_TOO_SMALL) /\
  (need <= size -> exists l, layout cf size = Ok l /\ lo_size l = need /\ lo_alignment l = alignment).
Proof.
  intros Hcf Hsize. unfold fci_device_runtime_requirements.
  destruct (layout cf SIZE_MAX) as [l|] eqn:Hl; [|done]. intros [= <- <-].
  destruct (layout_full cf l Hcf Hl) as (_ & Hs & _). rewrite Hs by done.
  split; intros; destruct (Z.ltb_spec size (lo_size l)); try lia; [done|]. by exists l.
Qed.

(** ** Validation and initialisation *)

Abbreviation validate :=
  (fci_device_runtime_init_validate alignof sizeof_client_slot alignof_client_slot sizeof_pending_slot
     alignof_pending_slot sizeof_cache_slot alignof_cache_slot latest_requirements sizeof_instance).
Abbreviation init :=
  (fci_device_runtime_init alignof sizeof_client_slot alignof_client_slot sizeof_pending_slot
     alignof_pending_slot sizeof_cache_slot alignof_cache_slot latest_requirements sizeof_instance).
Abbreviation requirements :=
  (fci_device_runtime_requirements alignof sizeof_client_slot alignof_client_slot sizeof_pending_slot
     alignof_pending_slot sizeof_cache_slot alignof_cache_slot latest_requirements).

(** A component has been initialised. *)
Definition component_ok (ev : event rt_call) : bool :=
  match ev with
  | @Event _ R c a =>
      match c in rt_call R return R -> bool with
      | Wl_latest_init _ _ _ _ => fun r => bool_decide (r = WL_OK)
      | Wl_rpc_client_init _ _ _ _ _ _ => fun r => bool_decide (r = WL_RPC_OK)
      | _ => fun _ => true
      end a
  end.

Definition storage_usable (instance : Z) (st : runtime_storage) (need alignment : Z) : Prop :=
  need <= st_size st /\
  (need = 0 \/ exists data, st_data st = Some data /\ Z.land data (alignment - 1) = 0 /\
     overlaps sizeof_instance instance data need = false).

(** The validation accepts what has requirements that the storage meets. *)
Lemma validate_spec instance cf st :
  0 <= cf_client_enabled cf ->
  match validate instance cf st with
  | Ok (need, alignment) => requirements cf = Ok (need, alignment) /\ storage_usable instance st need alignment
  | Err _ => forall need alignment, requirements cf = Ok (need, alignment) ->
      ~ storage_usable instance st need alignment
  end.
Proof.
  intros Hclient. unfold fci_device_runtime_init_validate.
  assert (forall need alignment, requirements cf = Ok (need, alignment) ->
    fci_device_runtime_roles_valid cf = WL_OK /\ cf_server_enabled cf = 0 /\
    (cf_client_enabled cf >? 1) = false /\
    (negb (cf_client_enabled cf =? 0) = true ->
       (cf_client_slot_count cf =? 0) = false /\ (cf_client_response_capacity cf =? 0) = false)) as Hreq.
  { intros need alignment. unfold fci_device_runtime_requirements, fci_device_runtime_layout.
    destruct (latest_regions _ _ _ _ _) as [[rs c]|]; [|done]. change (Ok (rs, c) ≫= ?f) with (f (rs, c)).
    cbv beta iota. case_bool_decide as Hroles; cbn [negb]; [|done].
    rewrite (roles_no_server _ Hroles). destruct (cf_client_enabled cf >? 1); cbn [orb]; [done|].
    cbn [Z.gtb Z.compare]. unfold client_regions. destruct (cf_client_enabled cf =? 0); [done|].
    destruct (cf_client_slot_count cf =? 0), (cf_client_response_capacity cf =? 0); cbn [orb]; done. }
  case_bool_decide as Hr; cbn [negb]; [|by intros need alignment (? & _)%Hreq].
  rewrite (roles_no_server _ Hr). cbn [Z.gtb Z.compare Z.eqb negb andb].
  destruct (cf_client_enabled cf >? 1) eqn:Hgt; [by intros need alignment (_ & _ & ? & _)%Hreq|].
  destruct (negb (cf_client_enabled cf =? 0)) eqn:Hcl; cbn [andb].
  1: destruct (cf_client_slot_count cf =? 0) eqn:Hs;
       [intros need alignment (_ & _ & _ & Hc)%Hreq; by destruct (Hc eq_refl)|].
  1: destruct (cf_client_response_capacity cf =? 0) eqn:Hcap;
       [intros need alignment (_ & _ & _ & Hc)%Hreq; by destruct (Hc eq_refl)|].
  all: destruct (requirements cf) as [[need alignment]|] eqn:Hq; [|done].
  all: unfold storage_usable; destruct (Z.ltb_spec (st_size st) need);
    [by intros ? ? [= <- <-] [? _]; lia|].
  all: destruct (Z.eqb_spec need 0); [split; [done|]; split; [lia|by left]|].
  all: destruct (st_data st) as [data|]; [|by intros ? ? [= <- <-] [_ [?|(? & ? & _)]]].
  all: destruct (Z.eqb_spec (Z.land data (alignment - 1)) 0); cbn [negb];
    [|by intros ? ? [= <- <-] [_ [?|(? & [= <-] & ? & _)]]].
  all: destruct (overlaps sizeof_instance instance data need) eqn:Ho;
    [by intros ? ? [= <- <-] [_ [?|(? & [= <-] & _ & ?)]]; [|congruence]|].
  all: split; [done|]; split; [lia|]; right; by exists data.
Qed.

Lemma latests_run base generation pairs l r :
  Forall (fun p => is_Some (match latest_requirements (fst p) (generation (fst p)) with Ok n => Some n | Err _ => None end)) pairs ->
  runs (init_latests latest_requirements base generation pairs) l r ->
  if forallb component_ok l then r = WL_OK /\ length l = length pairs else r <> WL_OK.
Proof.
  intros Hp. revert l. induction Hp as [|[k rg] pairs Hk _ IH]; intros l; cbn [init_latests].
  - by intros [-> <-].
  - cbn in Hk. destruct (latest_requirements k (generation k)) as [need|]; [|by destruct Hk].
    intros (answer & l' & -> & Hr)%runs_call. cbn [forallb component_ok].
    destruct (decide (answer = WL_OK)) as [->|Hne].
    + apply IH in Hr. cbn [andb]. rewrite bool_decide_true by done. cbn [andb].
      destruct (forallb component_ok l'); [|done]. cbn. by destruct Hr as [-> ->].
    + destruct Hr as [-> ->]. by rewrite bool_decide_false by done.
Qed.

Lemma latest_regions_shape ks generation c rs c' :
  latest_regions alignof latest_requirements ks generation c = Ok (rs, c') ->
  length (zip ks rs) = length ks /\
  Forall (fun p => is_Some (match latest_requirements (fst p) (generation (fst p)) with Ok n => Some n | Err _ => None end))
    (zip ks rs).
Proof.
  revert c rs c'. induction ks as [|k ks IH]; intros c rs c'; cbn [latest_regions].
  - intros [= <- <-]. by split.
  - destruct (latest_requirements k (generation k)) as [need|] eqn:Hk; [|done].
    change (Ok need ≫= ?f) with (f need). cbv beta.
    destruct (fci_device_runtime_storage_region _ _ _ _) as [[r c1]|]; [|done].
    change (Ok (r, c1) ≫= ?f) with (f (r, c1)). cbv beta iota.
    destruct (latest_regions _ _ ks generation c1) as [[rs' c2]|] eqn:Hrs; [|done].
    intros [= <- <-]. destruct (IH _ _ _ Hrs) as [Hlen Hall]. cbn. rewrite Hlen. split; [done|].
    constructor; [|done]. cbn. by rewrite Hk.
Qed.

Lemma layout_shape cf size l :
  layout cf size = Ok l ->
  length (zip latests (lo_latest l)) = 3%nat /\
  Forall (fun p => is_Some (match latest_requirements (fst p) (cf_generation cf (fst p)) with Ok n => Some n | Err _ => None end))
    (zip latests (lo_latest l)) /\
  if cf_client_enabled cf =? 0 then lo_client l = [] else exists slots responses, lo_client l = [slots; responses].
Proof.
  unfold fci_device_runtime_layout.
  destruct (latest_regions _ _ _ _ _) as [[rs c]|] eqn:Hrs; [|done].
  change (Ok (rs, c) ≫= ?f) with (f (rs, c)). cbv beta iota.
  case_bool_decide as Hroles; cbn [negb]; [|done]. destruct (_ || _); [done|].
  destruct (client_regions _ _ cf c) as [[rs2 c2]|] eqn:Hc; [|done].
  change (Ok (rs2, c2) ≫= ?f) with (f (rs2, c2)). cbv beta iota.
  destruct (server_regions _ _ _ _ cf c2) as [[rs3 c3]|]; [|done].
  change (Ok (rs3, c3) ≫= ?f) with (f (rs3, c3)). cbv beta iota. intros [= <-]. cbn [lo_latest lo_client].
  destruct (latest_regions_shape _ _ _ _ _ Hrs) as [-> ?]. split; [done|]. split; [done|].
  unfold client_regions in Hc. destruct (cf_client_enabled cf =? 0); [by injection Hc as <- _|].
  destruct (_ || _); [done|]. cbn [take_regions] in Hc.
  destruct (fci_device_runtime_storage_region alignof_client_slot _ _ c) as [[r1 d1]|]; [|done].
  change (Ok (r1, d1) ≫= ?f) with (f (r1, d1)) in Hc. cbv beta iota in Hc.
  destruct (fci_device_runtime_storage_region 1 _ _ d1) as [[r2 d2]|]; [|done].
  injection Hc as <- _. by exists r1, r2.
Qed.

Lemma region_error a n s c : fci_device_runtime_storage_region a n s c <> Err WL_OK.
Proof. unfold fci_device_runtime_storage_region. repeat case_match; done. Qed.

Lemma err_bind {A B} e (f : A -> res wl_result B) :
  @Err wl_result A e <> Err WL_OK -> Err e ≫= f <> Err WL_OK.
Proof. intros He [= ->]. by destruct He. Qed.

Lemma take_regions_error rs c : take_regions rs c <> Err WL_OK.
Proof.
  revert c. induction rs as [|[[a n] s] rs IH]; intros c; [done|]. cbn [take_regions].
  pose proof (region_error a n s c) as Hr. destruct (fci_device_runtime_storage_region a n s c) as [[r d]|e]; [|by apply err_bind].
  change (Ok (r, d) ≫= ?f) with (f (r, d)). cbv beta iota. specialize (IH d).
  destruct (take_regions rs d) as [[? ?]|e]; [done|by apply err_bind].
Qed.

Lemma layout_error cf size : (forall k g, latest_requirements k g <> Err WL_OK) -> layout cf size <> Err WL_OK.
Proof.
  intros Hneeds. unfold fci_device_runtime_layout.
  assert (forall ks c, latest_regions alignof latest_requirements ks (cf_generation cf) c <> Err WL_OK) as Hl.
  { induction ks as [|k ks IH]; intros c; [done|]. cbn [latest_regions]. specialize (Hneeds k (cf_generation cf k)).
    destruct (latest_requirements k _) as [need|]; [|by apply err_bind]. change (Ok need ≫= ?f) with (f need). cbv beta.
    pose proof (region_error (alignof k) 1 need c) as Hr.
    destruct (fci_device_runtime_storage_region _ _ _ c) as [[r d]|e]; [|by apply err_bind].
    change (Ok (r, d) ≫= ?f) with (f (r, d)). cbv beta iota. specialize (IH d).
    destruct (latest_regions _ _ ks _ d) as [[? ?]|e]; [done|by apply err_bind]. }
  specialize (Hl latests {| cu_size := size; cu_offset := 0 |}).
  destruct (latest_regions _ _ latests _ _) as [[rs c]|]; [|by apply err_bind].
  change (Ok (rs, c) ≫= ?f) with (f (rs, c)). cbv beta iota.
  case_bool_decide; cbn [negb]; [|done]. destruct (_ || _); [done|].
  assert (forall d, client_regions sizeof_client_slot alignof_client_slot cf d <> Err WL_OK) as Hc.
  { intros d. unfold client_regions. repeat case_match; try done; apply take_regions_error. }
  specialize (Hc c). destruct (client_regions _ _ cf c) as [[rs2 c2]|]; [|by apply err_bind].
  change (Ok (rs2, c2) ≫= ?f) with (f (rs2, c2)). cbv beta iota.
  assert (forall d, server_regions sizeof_pending_slot alignof_pending_slot sizeof_cache_slot alignof_cache_slot cf d
    <> Err WL_OK) as Hs.
  { intros d. unfold server_regions. repeat case_match; try done; apply take_regions_error. }
  specialize (Hs c2). destruct (server_regions _ _ _ _ cf c2) as [[? ?]|]; [done|by apply err_bind].
Qed.

(** Initialising a runtime does what the validation says.  The validation,
    which looks at the configuration and the storage on its own, accepts exactly
    what the initialisation does not refuse: what it rejects, the initialisation
    refuses with an error, leaving the instance as it was and touching no
    component; what it accepts is initialised, every component once, and fails
    only when a component does, which leaves the instance cleared. *)
Theorem init_validated instance cf st old l result rt :
  (forall k g, latest_requirements k g <> Err WL_OK) ->
  config_unsigned cf -> 0 <= cf_client_enabled cf -> 0 <= st_size st <= SIZE_MAX ->
  runs (init instance cf st old) l (result, rt) ->
  match validate instance cf st with
  | Err _ => result <> WL_OK /\ rt = old /\ l = []
  | Ok _ =>
      if forallb component_ok l
      then result = WL_OK /\ rt = runtime_of instance cf /\
           length l = if cf_client_enabled cf =? 0 then 3%nat else 4%nat
      else result <> WL_OK /\ rt = runtime0 instance
  end.
Proof.
  intros Hneeds Hcf Hen Hsize Hr. pose proof (validate_spec instance cf st Hen) as Hv.
  unfold fci_device_runtime_init in Hr.
  destruct (requirements cf) as [[need alignment]|e] eqn:Hq.
  - unfold fci_device_runtime_requirements in Hq. destruct (layout cf SIZE_MAX) as [lo|] eqn:Hlo; [|done].
    injection Hq as <- <-. destruct (layout_full cf lo Hcf Hlo) as (_ & Hat & _).
    destruct (validate instance cf st) as [[need' alignment']|].
    + destruct Hv as [[= <- <-] [Hfit Hdata]]. destruct (Z.ltb_spec (st_size st) (lo_size lo)); [lia|].
      rewrite Hat in Hr by done. destruct (Z.ltb_spec (st_size st) (lo_size lo)); [lia|].
      match type of Hr with context [if ?b then _ else _] => assert (b = false) as Hb end.
      { destruct Hdata as [->|(data & -> & Hal & Ho)]; [done|]. cbn [default from_option id].
        rewrite Hal, Ho. by rewrite bool_decide_true, andb_false_r by done. }
      rewrite Hb in Hr. apply runs_bind in Hr as (l1 & l2 & answer & -> & Hinit & Hr).
      destruct (layout_shape _ _ _ Hlo) as (Hlen & Hall & Hclient).
      pose proof (latests_run _ _ _ _ _ Hall Hinit) as Hok. rewrite forallb_app, length_app.
      destruct (forallb component_ok l1); cbn [andb].
      * destruct Hok as [-> Hlen1]. rewrite Hlen1, Hlen. rewrite bool_decide_true in Hr by done. cbn [negb] in Hr.
        destruct (cf_client_enabled cf =? 0).
        -- rewrite Hclient in Hr. by destruct Hr as [-> [= <- <-]].
        -- destruct Hclient as (slots & responses & Hcl). rewrite Hcl in Hr.
           apply runs_call in Hr as (answer & ? & -> & [-> Hr]%runs_ret). cbn [forallb component_ok].
           destruct (decide (answer = WL_RPC_OK)); injection Hr as <- <-.
           ++ by rewrite bool_decide_true by done.
           ++ by rewrite bool_decide_false by done.
      * rewrite bool_decide_false in Hr by done. cbn [negb] in Hr. by destruct Hr as [-> [= <- <-]].
    + specialize (Hv _ _ eq_refl). destruct (Z.ltb_spec (st_size st) (lo_size lo)) as [Hlt|Hge];
        [by destruct Hr as [-> [= <- <-]]|].
      match type of Hr with context [if ?b then _ else _] => destruct b eqn:Hb end;
        [by destruct Hr as [-> [= <- <-]]|].
      exfalso. apply Hv. split; [done|].
      destruct (Z.eqb_spec (lo_size lo) 0); [by left|right]. cbn [negb andb] in Hb.
      destruct (st_data st) as [data|]; [|done]. cbn [default from_option id] in Hb. exists data.
      split; [done|]. rewrite bool_decide_true in Hb by done. cbn [negb orb] in Hb.
      apply orb_false_iff in Hb as [Hb ->]. split; [|done]. by apply negb_false_iff, Z.eqb_eq in Hb.
  - destruct Hr as [-> [= <- <-]]. destruct (validate instance cf st) as [[need alignment]|].
    + by destruct Hv.
    + split; [|done]. intros ->. unfold fci_device_runtime_requirements in Hq.
      destruct (layout cf SIZE_MAX) as [lo|e] eqn:Hlo; [done|]. injection Hq as ->.
      by apply layout_error in Hlo.
Qed.
End layout.

(** ** A sample layout

    Types of a common machine, and a library that asks for 200 bytes a cell. *)

Definition sample_needs (k : latest) (generation : Z) : res wl_result Z := Ok 200.

(** The defaults, with the client of the endpoint. *)
Definition sample_config : fci_device_runtime_config_t :=
  snd (fci_device_runtime_config_enable_client fci_device_runtime_config_defaults).

Abbreviation sample_layout := (fci_device_runtime_layout (fun _ => 8) 64 16 64 8 64 8 sample_needs sample_config).

Definition laid_out : runtime_layout :=
  match sample_layout SIZE_MAX with Ok l => l | Err _ => {| lo_latest := []; lo_client := []; lo_server := []; lo_size := 0; lo_alignment := 0 |} end.

Lemma sample_unsigned : config_unsigned sample_config.
Proof. unfold config_unsigned. cbn. lia. Defined.
Lemma samples_positive : 0 < 16 /\ 0 < 8 /\ 0 < 8.
Proof. lia. Defined.
Lemma samples_unsigned : 0 <= 64 /\ 0 <= 64 /\ 0 <= 64.
Proof. lia. Defined.
Lemma sample_needs_unsigned k g need : sample_needs k g = Ok need -> 0 <= need.
Proof. intros [= <-]. lia. Defined.

Lemma layout_fits_witness :
  map rg_offset (lo_regions laid_out) = [0; 200; 400; 608; 672] /\
  lo_size laid_out = 898 /\ lo_size laid_out <= 1000 /\
  Forall (fun r => (4096 + rg_offset r) mod rg_alignment r = 0) (lo_regions laid_out).
Proof.
  split; [vm_compute; reflexivity|]. split; [vm_compute; reflexivity|].
  destruct (layout_fits (fun _ => 8) 64 16 64 8 64 8 sample_needs (fun _ => eq_refl) samples_positive samples_unsigned
    sample_needs_unsigned sample_config 1000 laid_out sample_unsigned) as (Hle & _ & _ & Hal).
  - vm_compute. split; discriminate.
  - exists laid_out. vm_compute. reflexivity.
  - vm_compute. reflexivity.
  - split; [exact Hle|]. apply Hal. vm_compute. reflexivity.
Defined.

Lemma requirements_exact_witness :
  fci_device_runtime_requirements (fun _ => 8) 64 16 64 8 64 8 sample_needs sample_config = Ok (898, 16) /\
  sample_layout 897 = Err WL_ERR_BUF_TOO_SMALL /\
  exists l, sample_layout 898 = Ok l /\ lo_size l = 898 /\ lo_alignment l = 16.
Proof.
  split; [vm_compute; reflexivity|]. split.
  - apply (requirements_exact (fun _ => 8) 64 16 64 8 64 8 sample_needs (fun _ => eq_refl) samples_positive
      samples_unsigned sample_needs_unsigned sample_config 898 16 897 sample_unsigned);
      [vm_compute; split; discriminate|vm_compute; reflexivity|lia].
  - apply (requirements_exact (fun _ => 8) 64 16 64 8 64 8 sample_needs (fun _ => eq_refl) samples_positive
      samples_unsigned sample_needs_unsigned sample_config 898 16 898 sample_unsigned);
      [vm_compute; split; discriminate|vm_compute; reflexivity|lia].
Defined.

Definition sample_storage : runtime_storage := {| st_data := Some 4096; st_size := 1000 |}.
Definition sample_init :=
  play (fci_device_runtime_init (fun _ => 8) 64 16 64 8 64 8 sample_needs 500 0 sample_config sample_storage (runtime0 0))
    {| lib_hooks := []; lib_ended := []; lib_client := sample_client WL_RPC_CLIENT_WAIT_RESPONSE None |}.

Lemma init_validated_witness :
  fci_device_runtime_init_validate (fun _ => 8) 64 16 64 8 64 8 sample_needs 500 0 sample_config sample_storage =
    Ok (898, 16) /\
  fst (snd sample_init) = WL_OK /\ snd (snd sample_init) = runtime_of 0 sample_config /\
  length (fst sample_init) = 4%nat.
Proof.
  split; [vm_compute; reflexivity|].
  pose proof (init_validated (fun _ => 8) 64 16 64 8 64 8 sample_needs 500 (fun _ => eq_refl) samples_positive
    samples_unsigned sample_needs_unsigned 0 sample_config sample_storage (runtime0 0) (fst sample_init)
    (fst (snd sample_init)) (snd (snd sample_init))) as Hinit.
  replace (fci_device_runtime_init_validate (fun _ => 8) 64 16 64 8 64 8 sample_needs 500 0 sample_config sample_storage)
    with (@Ok (wl_result * init_diagnostic) (Z * Z) (898, 16)) in Hinit by (vm_compute; reflexivity).
  replace (forallb component_ok (fst sample_init)) with true in Hinit by (vm_compute; reflexivity).
  apply Hinit.
  - intros k g. discriminate.
  - exact sample_unsigned.
  - vm_compute. discriminate.
  - vm_compute. split; discriminate.
  - unfold sample_init. apply played.
Defined.
