(* ===== verification/LifecycleProps.v ===== *)
(** * The life of an endpoint

    The arena of an endpoint is large enough for the runtime; an endpoint that an
    allocator holds is freed once, and only then; and what was handed out before
    an endpoint is initialised again reaches nothing of the new one. *)

From S2P Require Import Prelude WlcWire WlcSchema WlcCodec FciMessages DeviceTypes Endpoint EndpointOps FciRpc Prog RuntimeCalls ManagedRpc RuntimeService RuntimeDispatch RpcEndpoint RuntimeInit EndpointInit LayoutProps RuntimeSamples.

(** ** Room *)

(** A region is made wherever its size and the padding fit. *)
Lemma region_room k n s size offset :
  0 <= k -> 0 <= n -> 0 <= s -> 0 <= offset ->
  offset + (2 ^ k - 1) + n * s <= size -> size <= SIZE_MAX ->
  exists r c', fci_device_runtime_storage_region (2 ^ k) n s {| cu_size := size; cu_offset := offset |} = Ok (r, c') /\
    cu_size c' = size /\ offset <= cu_offset c' <= offset + (2 ^ k - 1) + n * s.
Proof.
  intros Hk Hn Hs Ho Hfit Hmax. pose proof (Z.pow_pos_nonneg 2 k ltac:(lia) Hk) as Hp.
  destruct (aligned_spec k offset Hk) as [Hy _]. unfold fci_device_runtime_storage_region.
  cbn [cu_size cu_offset]. destruct (Z.eqb_spec (2 ^ k) 0); [lia|].
  assert (Z.land (2 ^ k) (2 ^ k - 1) = 0) as ->.
  { replace (2 ^ k - 1) with (Z.ones k) by (rewrite Z.ones_equiv; lia).
    rewrite Z.land_ones by done. by apply Z.mod_same; lia. }
  cbn [orb negb Z.eqb].
  assert (negb (n =? 0) && (s >? SIZE_MAX / n) = false) as ->.
  { destruct (Z.eqb_spec n 0) as [|Hn0]; [done|]. cbn. rewrite Z.gtb_ltb. apply Z.ltb_ge.
    apply Z.div_le_lower_bound; lia. }
  repeat match goal with |- context [?a >? ?b] => rewrite (Z.gtb_ltb a b) end.
  destruct (Z.ltb_spec (SIZE_MAX - (2 ^ k - 1)) offset); [nia|].
  set (y := Z.land (offset + (2 ^ k - 1)) (Z.lnot (2 ^ k - 1))) in *.
  destruct (Z.ltb_spec (SIZE_MAX - y) (n * s)); [lia|].
  destruct (Z.ltb_spec size (y + n * s)); [lia|].
  eexists _, _. split; [done|]. cbn. nia.
Qed.

Section arena.
Variable sizeof alignof : latest -> Z.
Variable sizeof_client_slot alignof_client_slot : Z.
Variable sizeof_pending_slot alignof_pending_slot : Z.
Variable sizeof_cache_slot alignof_cache_slot : Z.
Variable latest_requirements : latest -> Z -> res wl_result Z.

(** [FCI_DEVICE_RUNTIME_DEFAULT_STORAGE_ALIGNMENT]: that of a union of the types
    that have a region; [WL_LATEST_SLOT_COUNT] of the library. *)
Variable storage_alignment slot_count : Z.

(** Alignments are powers of two, up to the union's. *)
Hypothesis alignments : forall a, In a (alignof_client_slot :: map alignof latests) ->
  exists k, 0 <= k /\ a = 2 ^ k /\ a <= storage_alignment.
Hypothesis sizes : 0 <= sizeof_client_slot /\ 0 <= slot_count /\ forall k, 0 <= sizeof k.
(** A cell of the library needs at most its slots, each padded. *)
Hypothesis cell_needs : forall k g, exists need, latest_requirements k g = Ok need /\
  0 <= need <= (sizeof k + (storage_alignment - 1)) * slot_count.

(** [FCI_DEVICE_RUNTIME_DEFAULT_STORAGE_CAPACITY]. *)
Definition cell_capacity (k : latest) : Z :=
  (storage_alignment - 1) + (sizeof k + (storage_alignment - 1)) * slot_count.
Definition FCI_DEVICE_RUNTIME_DEFAULT_STORAGE_CAPACITY : Z :=
  1 + cell_capacity ArmStatusLatest + cell_capacity MotorFeedbackLatest +
  cell_capacity ArmDiagnosticsLatest + ((storage_alignment - 1) + sizeof_client_slot) + 226.

(** [FCI_DEVICE_ENDPOINT_RUNTIME_CAPACITY]: the size of the endpoint's arena. *)
Definition FCI_DEVICE_ENDPOINT_RUNTIME_CAPACITY : Z :=
  FCI_DEVICE_RUNTIME_DEFAULT_STORAGE_CAPACITY +
  (FCI_DEVICE_ENDPOINT_RPC_CAPACITY - 1) * (sizeof_client_slot + 226).

Lemma latests_room ks generation size offset :
  0 <= offset -> size <= SIZE_MAX -> (forall k, In k ks -> In k latests) ->
  offset + foldr (fun k n => cell_capacity k + n) 0 ks <= size ->
  exists rs c', latest_regions alignof latest_requirements ks generation
      {| cu_size := size; cu_offset := offset |} = Ok (rs, c') /\ cu_size c' = size /\
    0 <= cu_offset c' <= offset + foldr (fun k n => cell_capacity k + n) 0 ks.
Proof.
  intros Ho Hsize. revert offset Ho. induction ks as [|k ks IH]; intros offset Ho Hin Hfit.
  - eexists _, _. split; [reflexivity|]. cbn. cbn in Hfit. lia.
  - cbn [foldr] in *. cbn [latest_regions]. destruct (cell_needs k (generation k)) as (need & -> & Hneed).
    destruct (alignments (alignof k)) as (a & Ha & Hal & Hle).
    { right. apply List.in_map, Hin. by left. }
    assert (0 <= foldr (fun k n => cell_capacity k + n) 0 ks) as Hrest.
    { destruct sizes as (_ & Hc & Hs). pose proof (Z.pow_pos_nonneg 2 a ltac:(lia) Ha).
      clear -Hc Hs Hle Hal H. induction ks as [|k' ks IH]; cbn [foldr]; [lia|]. unfold cell_capacity at 1.
      specialize (Hs k'). nia. }
    unfold cell_capacity at 1 in Hfit.
    destruct (region_room a 1 need size offset) as (r & c1 & Hr & Hc1 & Hle1); [lia..|].
    change (Ok need ≫= ?f) with (f need). cbv beta. rewrite Hal, Hr.
    change (Ok (r, c1) ≫= ?f) with (f (r, c1)). cbv beta iota.
    destruct c1 as [size1 offset1]. cbn [cu_size cu_offset] in *. subst size1.
    destruct (IH offset1) as (rs & c2 & -> & Hc2 & Hle2); [lia|by intros k' Hk'; apply Hin; right|lia|].
    eexists _, _. split; [reflexivity|]. split; [done|]. unfold cell_capacity at 1. lia.
Qed.

(** An endpoint's arena has room for its runtime.  With a client of at
    least one slot and at most four, and responses of at most 226 bytes each,
    which every configuration that [init_config] accepts from the defaults has,
    the layout of the runtime is made within the arena, wherever the initial
    generations stand and however much padding the regions need: initialisation
    never fails for lack of storage. *)
Theorem arena_enough cf :
  fci_device_runtime_roles_valid cf = WL_OK -> cf_client_enabled cf = 1 ->
  1 <= cf_client_slot_count cf <= FCI_DEVICE_ENDPOINT_RPC_CAPACITY ->
  1 <= cf_client_response_capacity cf <= 226 ->
  FCI_DEVICE_ENDPOINT_RUNTIME_CAPACITY <= SIZE_MAX ->
  exists l,
    fci_device_runtime_layout alignof sizeof_client_slot alignof_client_slot sizeof_pending_slot
      alignof_pending_slot sizeof_cache_slot alignof_cache_slot latest_requirements cf
      FCI_DEVICE_ENDPOINT_RUNTIME_CAPACITY = Ok l /\
    lo_size l <= FCI_DEVICE_ENDPOINT_RUNTIME_CAPACITY.
Proof.
  intros Hroles Hclient Hslots Hcap Hmax. destruct sizes as (Hss & Hsc & Hsz).
  destruct (alignments alignof_client_slot (or_introl eq_refl)) as (a & Ha & Hal & Hle).
  pose proof (Z.pow_pos_nonneg 2 a ltac:(lia) Ha) as Hpow.
  set (size := FCI_DEVICE_ENDPOINT_RUNTIME_CAPACITY) in *.
  assert (size = foldr (fun k n => cell_capacity k + n) 0 latests + (storage_alignment - 1) +
    FCI_DEVICE_ENDPOINT_RPC_CAPACITY * (sizeof_client_slot + 226) + 1) as Hsize.
  { unfold size, FCI_DEVICE_ENDPOINT_RUNTIME_CAPACITY, FCI_DEVICE_RUNTIME_DEFAULT_STORAGE_CAPACITY,
      FCI_DEVICE_ENDPOINT_RPC_CAPACITY. cbn [foldr latests]. lia. }
  assert (cf_client_slot_count cf * sizeof_client_slot + cf_client_slot_count cf * cf_client_response_capacity cf
    <= FCI_DEVICE_ENDPOINT_RPC_CAPACITY * (sizeof_client_slot + 226)) as Hclients.
  { unfold FCI_DEVICE_ENDPOINT_RPC_CAPACITY in *. nia. }
  unfold fci_device_runtime_layout.
  destruct (latests_room latests (cf_generation cf) size 0) as (rs & c1 & -> & Hc1 & Hle1);
    [done|done|done|unfold FCI_DEVICE_ENDPOINT_RPC_CAPACITY in *; lia|].
  change (Ok (rs, c1) ≫= ?f) with (f (rs, c1)). cbv beta iota.
  rewrite (bool_decide_true (fci_device_runtime_roles_valid cf = WL_OK) Hroles). cbn [negb].
  pose proof (roles_no_server _ Hroles) as Hserver. rewrite Hclient, Hserver. cbn [Z.gtb Z.compare Pos.compare Pos.compare_cont orb].
  unfold client_regions, server_regions. rewrite Hclient, Hserver. cbn [Z.eqb Pos.eqb].
  destruct (Z.eqb_spec (cf_client_slot_count cf) 0); [lia|].
  destruct (Z.eqb_spec (cf_client_response_capacity cf) 0); [lia|]. cbn [orb take_regions].
  destruct c1 as [size1 offset1]. cbn [cu_size cu_offset] in *. subst size1.
  destruct (region_room a (cf_client_slot_count cf) sizeof_client_slot size offset1)
    as (r1 & c2 & Hr1 & Hc2 & Hle2); [lia..|nia|done|].
  rewrite Hal, Hr1. change (Ok (r1, c2) ≫= ?f) with (f (r1, c2)). cbv beta iota.
  destruct c2 as [size2 offset2]. cbn [cu_size cu_offset] in *. subst size2.
  destruct (region_room 0 (cf_client_slot_count cf) (cf_client_response_capacity cf) size offset2)
    as (r2 & c3 & Hr2 & Hc3 & Hle3); [lia..|cbn [Z.pow]; nia|done|].
  change (2 ^ 0) with 1 in *. rewrite Hr2.
  eexists. split; [reflexivity|]. cbn [lo_size]. lia.
Qed.
End arena.

(** ** Allocation *)

Definition no_free (ev : event rt_call) : Prop :=
  match ev with
  | @Event _ R c a =>
      match c in rt_call R with Allocate _ _ | Deallocate _ _ _ => False | _ => True end
  end.

Section allocation.
Variable async : wl_rpc_client_result_t -> rpc_completion.

(** Closing an endpoint keeps its address, and frees nothing. *)
Lemma completions_self l e h :
  safe any h (run_completions async l e) (fun _ e' => en_self e' = en_self e).
Proof.
  revert e h. induction l as [|[observer client] l IH]; intros e h; [done|]. cbn [run_completions].
  assert (en_self (endpoint_prepare async (ob_rpc observer) client e) = en_self e) as Hself
    by (unfold endpoint_prepare; repeat case_match; done).
  eapply (safe_bind _ _ _ _ (fun _ e2 => en_self e2 = en_self e)).
  - unfold endpoint_notify, sync_done. walk_safe; done.
  - intros h' e2 <-. apply IH.
Qed.

Lemma completions_free l e : only no_free (run_completions async l e).
Proof.
  revert e. induction l as [|[o client] l IH]; intros e; [done|]. cbn [run_completions].
  apply only_bind; [|intros; apply IH]. unfold endpoint_notify, sync_done. solve_only.
Qed.
#[local] Hint Resolve completions_free : only.

Lemma close_free e : only no_free (fci_device_endpoint_close async e).
Proof. unfold fci_device_endpoint_close. solve_only. Qed.

Lemma close_self e l result e' :
  runs (fci_device_endpoint_close async e) l (result, e') -> en_self e' = en_self e.
Proof.
  intros Hr. assert (safe any [] (fci_device_endpoint_close async e) (fun _ '(_, e') => en_self e' = en_self e)) as Hs.
  { unfold fci_device_endpoint_close. destruct (_ || _); [done|]. apply safe_call; [done|]. intros [].
    apply safe_call; [done|]. intros [closed completions].
    eapply safe_bind; [apply completions_self|]. intros h e2 H2. exact H2. }
  by destruct (safe_runs _ _ _ _ _ _ Hs Hr) as [_ Hp].
Qed.

Variable alignof : latest -> Z.
Variable sizeof_client_slot alignof_client_slot : Z.
Variable sizeof_pending_slot alignof_pending_slot : Z.
Variable sizeof_cache_slot alignof_cache_slot : Z.
Variable latest_requirements : latest -> Z -> res wl_result Z.
Variable sizeof_instance : Z.
Variable sizeof_endpoint alignof_endpoint offset_instance offset_arena arena_size : Z.

Abbreviation runtime_init :=
  (fci_device_runtime_init alignof sizeof_client_slot alignof_client_slot sizeof_pending_slot
     alignof_pending_slot sizeof_cache_slot alignof_cache_slot latest_requirements sizeof_instance).
Abbreviation init_config :=
  (fci_device_endpoint_init_config alignof sizeof_client_slot alignof_client_slot sizeof_pending_slot
     alignof_pending_slot sizeof_cache_slot alignof_cache_slot latest_requirements sizeof_instance
     offset_instance offset_arena arena_size).
Abbreviation create :=
  (fci_device_endpoint_create alignof sizeof_client_slot alignof_client_slot sizeof_pending_slot
     alignof_pending_slot sizeof_cache_slot alignof_cache_slot latest_requirements sizeof_instance
     sizeof_endpoint alignof_endpoint offset_instance offset_arena arena_size async).
Abbreviation destroy := (fci_device_endpoint_destroy sizeof_endpoint alignof_endpoint async).

Lemma latests_only (P : event rt_call -> Prop) base generation l :
  (forall k a s g r, P (Event (Wl_latest_init k a s g) r)) ->
  only P (init_latests latest_requirements base generation l).
Proof.
  intros HP. induction l as [|[k r] l IH]; [done|]. cbn [init_latests].
  destruct (latest_requirements k (generation k)); [|done]. apply only_call; [intros; apply HP|].
  intros answer. by destruct (decide _).
Qed.

Lemma runtime_init_free instance cf st old : only no_free (runtime_init instance cf st old).
Proof.
  unfold fci_device_runtime_init. destruct (fci_device_runtime_requirements _ _ _ _ _ _ _ _ cf) as [[need al]|]; [|done].
  cbv zeta. destruct (st_size st <? need); [done|]. destruct (negb (need =? 0) && _); [done|].
  destruct (fci_device_runtime_layout _ _ _ _ _ _ _ _ cf _) as [lo|]; [|done].
  apply only_bind; [by apply latests_only|]. intros result. destruct (negb _); [done|].
  destruct (lo_client lo) as [|slots [|responses [|]]]; solve_only.
Qed.
#[local] Hint Resolve runtime_init_free : only.

Lemma init_free cfg o : only no_free (init_config cfg o).
Proof. unfold fci_device_endpoint_init_config, init_accepted. solve_only. Qed.

(** What initialisation makes of the endpoint: its address stays. *)
Lemma init_self cfg o h :
  safe any h (init_config cfg o) (fun _ '(_, o') => en_self (eo_endpoint o') = en_self (eo_endpoint o)).
Proof.
  unfold fci_device_endpoint_init_config, init_accepted. walk_safe; try done.
  eapply (safe_bind _ _ _ _ (fun _ _ => True)).
  - eapply (safe_only no_free); [apply runtime_init_free|done|done].
  - intros h' [result rt] _. walk_safe; done.
Qed.

(** Creating an endpoint frees what it does not return, and nothing else.
    Of the one block that [create] asks for: it is given back at the end, once,
    with the size and alignment that were asked for, when the endpoint is not
    returned, be it misaligned or not initialised; and when it is returned, the
    endpoint is at the block's address, aligned, and nothing is given back. *)
Theorem create_balanced cfg l result :
  runs (create cfg) l result ->
  exists answer rest, l = Event (Allocate sizeof_endpoint alignof_endpoint) answer :: rest /\
  match answer, result with
  | None, Err error => error = WL_ERR_NO_MEM /\ rest = []
  | Some address, Err _ =>
      exists mid, rest = mid ++ [Event (Deallocate address sizeof_endpoint alignof_endpoint) tt] /\
        Forall no_free mid
  | Some address, Ok o =>
      en_self (eo_endpoint o) = address /\ address mod alignof_endpoint = 0 /\ eo_allocated o = true /\
      Forall no_free rest
  | None, Ok _ => False
  end.
Proof.
  intros Hr. unfold fci_device_endpoint_create in Hr. step_call Hr allocated.
  destruct allocated as [address|]; [|destruct Hr as [-> <-]; by exists None, []].
  destruct (Z.eqb_spec (address mod alignof_endpoint) 0) as [Hal|]; cbn [negb] in Hr.
  - apply runs_bind in Hr as (l1 & l2 & [code o] & -> & Hinit & Hr).
    pose proof (only_runs _ _ _ _ (init_free _ _) Hinit) as Hfree.
    case_bool_decide; cbn [negb] in Hr.
    + destruct Hr as [-> <-]. exists (Some address), (l1 ++ []). split; [done|]. rewrite app_nil_r.
      destruct (safe_runs _ _ _ _ _ _ (init_self cfg _ []) Hinit) as [_ Hself]. done.
    + apply runs_bind in Hr as (l3 & l4 & [closed e] & -> & Hclose & Hr).
      unfold deallocate in Hr. apply runs_call in Hr as ([] & l5 & -> & [-> <-]).
      exists (Some address). eexists. split; [reflexivity|]. exists (l1 ++ l3).
      split; [by rewrite <- app_assoc|]. apply Forall_app. split; [done|].
      by apply (only_runs _ _ _ _ (close_free _) Hclose).
  - unfold deallocate in Hr. apply runs_call in Hr as ([] & l5 & -> & [-> <-]).
    exists (Some address). eexists. split; [reflexivity|]. by exists [].
Qed.

(** Destroying an endpoint frees it when it is closed, and only then.  An
    endpoint that no allocator holds is refused untouched; one whose closing
    fails stays with its owner, not freed; else the owner's pointer is cleared and
    the block is given back, once, with its size and alignment, after every other
    call. *)
Theorem destroy_frees o l result owner :
  runs (destroy (Some o)) l (result, owner) ->
  (result = WL_OK /\ owner = None /\ eo_allocated o = true /\
   exists mid, Forall no_free mid /\
     l = mid ++ [Event (Deallocate (en_self (eo_endpoint o)) sizeof_endpoint alignof_endpoint) tt]) \/
  (result <> WL_OK /\ Forall no_free l /\
   exists o', owner = Some o' /\ en_self (eo_endpoint o') = en_self (eo_endpoint o) /\
     eo_allocated o' = eo_allocated o).
Proof.
  intros Hr. unfold fci_device_endpoint_destroy in Hr. destruct (eo_allocated o) eqn:Ha; cbn [negb] in Hr.
  - apply runs_bind in Hr as (l1 & l2 & [code e] & -> & Hclose & Hr).
    pose proof (only_runs _ _ _ _ (close_free _) Hclose) as Hfree. pose proof (close_self _ _ _ _ Hclose) as Hself.
    case_bool_decide; cbn [negb] in Hr.
    + unfold deallocate in Hr. apply runs_call in Hr as ([] & l5 & -> & [-> [= <- <-]]).
      left. rewrite Hself. repeat (split; [done|]). by exists l1.
    + destruct Hr as [-> [= <- <-]]. right. rewrite app_nil_r. split; [done|]. split; [done|].
      by exists (set_endpoint e o).
  - destruct Hr as [-> [= <- <-]]. right. split; [done|]. split; [constructor|]. by exists o.
Qed.

(** ** Another incarnation *)

Lemma config_refused cfg linked e r : config_checked cfg linked e = Err r -> r <> WL_OK.
Proof. unfold config_checked. repeat case_match; congruence. Qed.

(** A branch that answers a result that is not [WL_OK]. *)
Ltac not_ok :=
  match goal with
  | H : negb (bool_decide (?r = WL_OK)) = true |- ?r = WL_OK -> _ =>
      intros ->; by rewrite bool_decide_true in H
  | H : config_checked _ _ _ = Err ?r |- ?r = WL_OK -> _ => by intros ?%(config_refused _ _ _ _ H)
  | |- ?r = WL_OK -> _ => intros [=]
  end.

(** An initialisation that succeeds, as the incarnation it makes. *)
Lemma init_incarnation cfg o h :
  safe any h (init_config cfg o) (fun _ '(result, o') => result = WL_OK ->
    en_incarnation (eo_endpoint o') = en_incarnation (eo_endpoint o) + 1 /\
    rn_incarnation (en_runtime (eo_endpoint o')) = en_incarnation (eo_endpoint o) + 1 /\
    en_incarnation (eo_endpoint o) <> UINT64_MAX).
Proof.
  unfold fci_device_endpoint_init_config, init_accepted. walk_safe; try done; try not_ok.
  eapply (safe_bind _ _ _ _ (fun _ _ => True)).
  - eapply (safe_only no_free); [apply runtime_init_free|done|done].
  - match goal with H : (en_incarnation _ =? UINT64_MAX) = false |- _ => apply Z.eqb_neq in H end.
    intros h' [result rt] _. walk_safe; cbn -[UINT64_MAX]; try not_ok; done.
Qed.

Definition asks_endpoint_only (ev : event rt_call) : Prop :=
  match ev with
  | @Event _ R c a => match c in rt_call R with Wl_endpoint_link => True | _ => False end
  end.

(** What was handed out before an endpoint is initialised again reaches
    nothing of the new one.  An initialisation that succeeds makes a new
    incarnation; a handle of a manual call that an earlier incarnation handed out
    is then refused by every operation on it, for every RPC, without a call to the
    library beyond the question whether the endpoint is there; and a server's
    token of an earlier incarnation cannot answer. *)
Theorem handles_expire cfg o l o' c handle token :
  runs (init_config cfg o) l (WL_OK, o') ->
  mh_incarnation handle <= en_incarnation (eo_endpoint o) ->
  tk_incarnation token <= en_incarnation (eo_endpoint o) ->
  (forall l' r, runs (manual_call_get c handle (eo_endpoint o')) l' r ->
     (r = Err WL_RPC_ERR_NOT_FOUND \/ r = Err WL_RPC_ERR_NOT_INITIALIZED) /\ Forall asks_endpoint_only l') /\
  (forall l' r, runs (manual_release c handle (eo_endpoint o')) l' r ->
     r <> WL_RPC_OK /\ Forall asks_endpoint_only l') /\
  (forall l' r, runs (manual_cancel c handle (eo_endpoint o')) l' r ->
     r <> WL_RPC_OK /\ Forall asks_endpoint_only l') /\
  (forall status response now owned l' r,
     runs (managed_finish c (en_runtime (eo_endpoint o')) token status response now owned) l' r ->
     r_domain r = FCI_DEVICE_RUNTIME_INVALID_ARGUMENT /\ l' = []).
Proof.
  intros Hinit Hh Ht. destruct (safe_runs _ _ _ _ _ _ (init_incarnation cfg o []) Hinit) as [_ Hinc].
  destruct (Hinc eq_refl) as (He & Hrt & _).
  assert (forall l' r, runs (manual_call_get c handle (eo_endpoint o')) l' r ->
     (r = Err WL_RPC_ERR_NOT_FOUND \/ r = Err WL_RPC_ERR_NOT_INITIALIZED) /\ Forall asks_endpoint_only l') as Hget.
  { intros l' r. unfold manual_call_get, fci_device_endpoint_runtime.
    intros (l1 & l2 & runtime & -> & Hrun & Hr)%runs_bind.
    apply runs_call in Hrun as (linked & l3 & -> & [-> <-]). destruct linked.
    - replace (mh_incarnation handle =? en_incarnation (eo_endpoint o')) with false in Hr
        by (symmetry; apply Z.eqb_neq; lia).
      rewrite orb_true_r in Hr. destruct Hr as [-> <-]. split; [by left|by repeat constructor].
    - destruct Hr as [-> <-]. split; [by right|by repeat constructor]. }
  split; [exact Hget|]. split; [|split].
  - intros l' r. unfold manual_release. intros (l1 & l2 & got & -> & Hg & Hr)%runs_bind.
    destruct (Hget _ _ Hg) as [Hgot Hasks].
    destruct Hgot as [-> | ->]; destruct Hr as [-> <-]; by rewrite app_nil_r.
  - intros l' r. unfold manual_cancel. intros (l1 & l2 & got & -> & Hg & Hr)%runs_bind.
    destruct (Hget _ _ Hg) as [Hgot Hasks].
    destruct Hgot as [-> | ->]; destruct Hr as [-> <-]; by rewrite app_nil_r.
  - intros status response now owned l' r. unfold managed_finish, token_of_runtime.
    replace (tk_incarnation token =? rn_incarnation (en_runtime (eo_endpoint o'))) with false
      by (symmetry; apply Z.eqb_neq; lia).
    rewrite andb_false_r, orb_true_r. by intros [-> <-].
Qed.
End allocation.

(** ** A sample endpoint *)

Definition quiet_library : library :=
  {| lib_hooks := []; lib_ended := []; lib_client := sample_client WL_RPC_CLIENT_WAIT_RESPONSE None |}.

Lemma sample_alignments a :
  In a (16 :: map (fun _ => 8) latests) -> exists k, 0 <= k /\ a = 2 ^ k /\ a <= 16.
Proof. cbn. intros [<-|[<-|[<-|[<-|[]]]]]; [exists 4|exists 3|exists 3|exists 3]; lia. Defined.
Lemma sample_cells k g :
  exists need, sample_needs k g = Ok need /\ 0 <= need <= (52 + (16 - 1)) * 3.
Proof. exists 200. split; [reflexivity|lia]. Defined.

Lemma arena_enough_witness :
  FCI_DEVICE_ENDPOINT_RUNTIME_CAPACITY (fun _ => 52) 64 16 3 = 1824 /\
  exists l, fci_device_runtime_layout (fun _ => 8) 64 16 64 8 64 8 sample_needs
    (ec_advanced (fci_device_endpoint_config_defaults true)) 1824 = Ok l /\ lo_size l <= 1824.
Proof.
  split; [vm_compute; reflexivity|].
  apply (arena_enough (fun _ => 52) (fun _ => 8) 64 16 64 8 64 8 sample_needs 16 3 sample_alignments).
  - split; [lia|]. split; [lia|]. intros _. lia.
  - exact sample_cells.
  - reflexivity.
  - reflexivity.
  - vm_compute. split; discriminate.
  - vm_compute. split; discriminate.
  - vm_compute. discriminate.
Defined.

(** A configuration that observes responses, which this build has no server for:
    creating the endpoint fails after the runtime has been made. *)
Definition refused_config : fci_device_endpoint_config_t :=
  let cfg := fci_device_endpoint_config_defaults true in
  {| ec_link := ec_link cfg; ec_clock := true; ec_advanced := ec_advanced cfg; ec_on_bulk_status := true;
     ec_on_response_terminal := true; ec_event_budget := 16; ec_on_result := true |}.
Definition create_sample (cfg : fci_device_endpoint_config_t) :=
  fci_device_endpoint_create (fun _ => 8) 64 16 64 8 64 8 sample_needs 500 9000 16 64 2048 1824 sample_completion cfg.

(** There is no link before initialisation. *)
Definition unlinked {R} (c : rt_call R) (s : library) : R * library :=
  match c in rt_call R return R * library with
  | Wl_endpoint_link => (false, s)
  | c => library_answer c s
  end.
Definition refused_creation := interp (@unlinked) (create_sample refused_config) quiet_library.

Lemma create_balanced_witness :
  snd refused_creation = Err WL_ERR_INVALID_ARG /\
  exists answer rest, fst refused_creation = Event (Allocate 9000 16) answer :: rest /\
    match answer with
    | Some address => exists mid, rest = mid ++ [Event (Deallocate address 9000 16) tt] /\ Forall no_free mid
    | None => False
    end.
Proof.
  assert (snd refused_creation = Err WL_ERR_INVALID_ARG) as Hr by (vm_compute; reflexivity).
  split; [exact Hr|].
  destruct (create_balanced sample_completion (fun _ => 8) 64 16 64 8 64 8 sample_needs 500 9000 16 64 2048 1824
    refused_config (fst refused_creation) (snd refused_creation)) as (answer & rest & Hl & Hcase).
  - unfold refused_creation. apply interp_runs.
  - exists answer, rest. split; [exact Hl|]. rewrite Hr in Hcase.
    destruct answer as [address|]; [exact Hcase|]. destruct Hcase as [Hcase _]. discriminate Hcase.
Defined.

Definition allocated_object : endpoint_object :=
  {| eo_endpoint := endpoint0 4096 4160; eo_previous_session := 1; eo_allocated := true |}.
Definition sample_destruction :=
  play (fci_device_endpoint_destroy 9000 16 sample_completion (Some allocated_object)) quiet_library.

Lemma destroy_frees_witness :
  fst (snd sample_destruction) = WL_OK /\ snd (snd sample_destruction) = None /\
  exists mid, Forall no_free mid /\ fst sample_destruction = mid ++ [Event (Deallocate 4096 9000 16) tt].
Proof.
  assert (fst (snd sample_destruction) = WL_OK) as Hok by (vm_compute; reflexivity).
  split; [exact Hok|].
  destruct (destroy_frees sample_completion 9000 16 allocated_object (fst sample_destruction)
    (fst (snd sample_destruction)) (snd (snd sample_destruction))) as [(_ & Hn & _ & Hf)|(Hne & _)].
  - unfold sample_destruction. apply played.
  - split; [exact Hn|exact Hf].
  - destruct (Hne Hok).
Defined.

(** An endpoint that was of incarnation 6, initialised again. *)
Definition closed_object : endpoint_object :=
  {| eo_endpoint := with_incarnation 6 (endpoint0 4096 4160); eo_previous_session := 41; eo_allocated := false |}.
Definition again :=
  interp (@unlinked)
    (fci_device_endpoint_init (fun _ => 8) 64 16 64 8 64 8 sample_needs 500 64 2048 1824 true closed_object)
    quiet_library.

Lemma handles_expire_witness :
  fst (snd again) = WL_OK /\ eo_previous_session (snd (snd again)) = 42 /\
  forall l r,
    runs (manual_cancel sample_rpc {| mh_owner := 4096; mh_incarnation := 6; mh_handle := 71 |}
      (eo_endpoint (snd (snd again)))) l r ->
    r <> WL_RPC_OK /\ Forall asks_endpoint_only l.
Proof.
  split; [vm_compute; reflexivity|]. split; [vm_compute; reflexivity|].
  destruct (handles_expire (fun _ => 8) 64 16 64 8 64 8 sample_needs 500 64 2048 1824
    (fci_device_endpoint_config_defaults true) closed_object (fst again) (snd (snd again)) sample_rpc
    {| mh_owner := 4096; mh_incarnation := 6; mh_handle := 71 |} sample_token) as (_ & _ & Hcancel & _).
  - assert (fst (snd again) = WL_OK) as <- by (vm_compute; reflexivity).
    rewrite <- surjective_pairing. unfold again, fci_device_endpoint_init. apply interp_runs.
  - vm_compute. discriminate.
  - vm_compute. discriminate.
  - exact Hcancel.
Defined.
