(* ===== verification/RuntimeApi.v ===== *)
(** * The functions of each RPC

    What the generator writes for each RPC of the protocol: for the 19 RPCs of
    version 2 the functions of [generated/wirelink/host/fci_device_runtime.c]
    (the client's and the server's side), of [fci_device_runtime.h] (calls that
    complete through a callback, and synchronous calls) and of
    [fci_device_advanced.h] (manual calls), with the case of the RPC's request
    and of its response in the dispatch of an event; for the three RPCs of version
    1, theirs.  A block differs from another's by the ids and the tables of the
    two messages, that is, by the RPC. *)

From S2P Require Import Prelude WlcWire WlcSchema WlcCodec WlcValue FciMessages DeviceTypes Endpoint EndpointOps FciRpc Prog RuntimeCalls ManagedRpc RuntimeService RuntimeDispatch RpcEndpoint.

(** ** What the blocks of version 1 and the messages share *)

(** [fci_device_endpoint_*_complete] of an RPC of version 1: at the endpoint's
    time. *)
Definition legacy_endpoint_complete (c : rpc) (request : wl_rpc_server_request_t) (response : wstruct)
    (e : fci_device_endpoint_t) : rtp runtime_result :=
  '(_, now) ← call Wl_endpoint_now;
  runtime ← fci_device_endpoint_runtime e;
  match runtime with
  | None => mret (rpc_outcome (rpc_response_id c) FCI_DEVICE_RUNTIME_INVALID_ARGUMENT
                    (with_application 0 detail0))
  | Some rt => legacy_complete c rt request response now
  end.

(** A case of the switch, by what it makes of an event. *)
Definition event_case : Type := wl_event_t -> fci_device_runtime_t -> Z -> rtp (outcome * fci_device_runtime_t).

Definition on_request : event_case := fun e rt _ => mret (request_case e, rt).
Definition on_response (c : rpc) : event_case := fun e rt now => response_case c e rt now.
Definition on_legacy_response (c : rpc) : event_case := fun e rt _ => legacy_response_case c e rt.

(** ** The cases of the dispatch *)

Definition set_zero_request_event : event_case := on_request.
Definition set_zero_response_event : event_case := on_response set_zero_rpc.
Definition clear_error_request_event : event_case := on_request.
Definition clear_error_response_event : event_case := on_response clear_error_rpc.
Definition home_request_event : event_case := on_request.
Definition home_response_event : event_case := on_response home_rpc.
Definition clear_faults_request_event : event_case := on_request.
Definition clear_faults_response_event : event_case := on_response clear_faults_rpc.
Definition acquire_control_lease_request_event : event_case := on_request.
Definition acquire_control_lease_response_event : event_case := on_response acquire_control_lease_rpc.
Definition release_control_lease_request_event : event_case := on_request.
Definition release_control_lease_response_event : event_case := on_response release_control_lease_rpc.
Definition get_motor_feedback_request_event : event_case := on_request.
Definition get_motor_feedback_response_event : event_case := on_response get_motor_feedback_rpc.
Definition get_device_info_request_event : event_case := on_request.
Definition get_device_info_response_event : event_case := on_response get_device_info_rpc.
Definition set_device_info_request_event : event_case := on_request.
Definition set_device_info_response_event : event_case := on_response set_device_info_rpc.
Definition set_arm_control_mode_request_event : event_case := on_request.
Definition set_arm_control_mode_response_event : event_case := on_response set_arm_control_mode_rpc.
Definition set_gripper_control_mode_request_event : event_case := on_request.
Definition set_gripper_control_mode_response_event : event_case := on_response set_gripper_control_mode_rpc.
Definition motor_register_read_request_event : event_case := on_request.
Definition motor_register_read_response_event : event_case := on_response motor_register_read_rpc.
Definition motor_register_write_request_event : event_case := on_request.
Definition motor_register_write_response_event : event_case := on_response motor_register_write_rpc.
Definition motor_store_parameters_request_event : event_case := on_request.
Definition motor_store_parameters_response_event : event_case := on_response motor_store_parameters_rpc.
Definition motor_set_zero_request_event : event_case := on_request.
Definition motor_set_zero_response_event : event_case := on_response motor_set_zero_rpc.
Definition set_arm_mode_request_event : event_case := on_request.
Definition set_arm_mode_response_event : event_case := on_response set_arm_mode_rpc.
Definition get_device_settings_request_event : event_case := on_request.
Definition get_device_settings_response_event : event_case := on_response get_device_settings_rpc.
Definition set_device_settings_request_event : event_case := on_request.
Definition set_device_settings_response_event : event_case := on_response set_device_settings_rpc.
Definition emergency_stop_request_event : event_case := on_request.
Definition emergency_stop_response_event : event_case := on_response emergency_stop_rpc.
Definition get_boot_status_request_event : event_case := on_request.
Definition get_boot_status_response_event : event_case := on_legacy_response get_boot_status_rpc.
Definition start_upgrade_request_event : event_case := on_request.
Definition start_upgrade_response_event : event_case := on_legacy_response start_upgrade_rpc.
Definition reboot_request_event : event_case := on_request.
Definition reboot_response_event : event_case := on_legacy_response reboot_rpc.

(** The switch, case by case. *)
Definition event_cases : list (Z * event_case) := [
  (24839, set_zero_request_event);
  (24840, set_zero_response_event);
  (24841, clear_error_request_event);
  (24842, clear_error_response_event);
  (25089, home_request_event);
  (25090, home_response_event);
  (25093, clear_faults_request_event);
  (25094, clear_faults_response_event);
  (25097, acquire_control_lease_request_event);
  (25098, acquire_control_lease_response_event);
  (25099, release_control_lease_request_event);
  (25100, release_control_lease_response_event);
  (25107, get_motor_feedback_request_event);
  (25108, get_motor_feedback_response_event);
  (25109, get_device_info_request_event);
  (25110, get_device_info_response_event);
  (25111, set_device_info_request_event);
  (25112, set_device_info_response_event);
  (25113, set_arm_control_mode_request_event);
  (25114, set_arm_control_mode_response_event);
  (25115, set_gripper_control_mode_request_event);
  (25116, set_gripper_control_mode_response_event);
  (25117, motor_register_read_request_event);
  (25118, motor_register_read_response_event);
  (25119, motor_register_write_request_event);
  (25120, motor_register_write_response_event);
  (25121, motor_store_parameters_request_event);
  (25122, motor_store_parameters_response_event);
  (25123, motor_set_zero_request_event);
  (25124, motor_set_zero_response_event);
  (25125, set_arm_mode_request_event);
  (25126, set_arm_mode_response_event);
  (25128, get_device_settings_request_event);
  (25129, get_device_settings_response_event);
  (25130, set_device_settings_request_event);
  (25131, set_device_settings_response_event);
  (25347, emergency_stop_request_event);
  (25348, emergency_stop_response_event);
  (28928, get_boot_status_request_event);
  (28929, get_boot_status_response_event);
  (28930, start_upgrade_request_event);
  (28931, start_upgrade_response_event);
  (28932, reboot_request_event);
  (28933, reboot_response_event)].

Section api.
(** What the library makes of a call that has ended. *)
Variable wl_rpc_async_completion : wl_rpc_client_result_t -> rpc_completion.
Variable sizeof alignof : latest -> Z.

(** *** [acquire_control_lease] *)

Definition fci_device_acquire_control_lease_client_start := managed_start acquire_control_lease_rpc.
Definition fci_device_acquire_control_lease_client_inspect := managed_inspect acquire_control_lease_rpc.
Definition fci_device_acquire_control_lease_client_decode := managed_decode acquire_control_lease_rpc.
Definition fci_device_acquire_control_lease_client_release := managed_release acquire_control_lease_rpc.
Definition fci_device_acquire_control_lease_encode_response := managed_encode_response acquire_control_lease_rpc.
Definition fci_device_acquire_control_lease_server_finish := managed_finish acquire_control_lease_rpc.
Definition fci_device_acquire_control_lease_request_inspect := managed_request_inspect acquire_control_lease_rpc.
Definition fci_device_acquire_control_lease_server_complete := managed_complete acquire_control_lease_rpc.
Definition fci_device_acquire_control_lease_server_reject := managed_reject acquire_control_lease_rpc.
Definition fci_device_acquire_control_lease_server_complete_value := managed_complete_value acquire_control_lease_rpc.
Definition fci_device_acquire_control_lease_encode_submission := managed_encode_submission acquire_control_lease_rpc.
Definition fci_device_endpoint_acquire_control_lease_prepare := endpoint_prepare wl_rpc_async_completion acquire_control_lease_rpc.
Definition fci_device_endpoint_acquire_control_lease_notify := endpoint_notify.
Definition fci_device_endpoint_acquire_control_lease_submit_at := endpoint_submit_at acquire_control_lease_rpc.
Definition fci_device_endpoint_acquire_control_lease_async := endpoint_async acquire_control_lease_rpc.
Definition fci_device_endpoint_acquire_control_lease_sync_done := sync_done.
Definition fci_device_endpoint_acquire_control_lease_proxy_submit := endpoint_proxy_submit acquire_control_lease_rpc.
Definition fci_device_endpoint_acquire_control_lease_sync (executor waiter : bool) (fuel : nat) :=
  endpoint_sync wl_rpc_async_completion sizeof alignof executor waiter fuel acquire_control_lease_rpc.
Definition fci_device_endpoint_acquire_control_lease_record_result := manual_record_result.
Definition fci_device_endpoint_acquire_control_lease_call := manual_call acquire_control_lease_rpc.
Definition fci_device_endpoint_acquire_control_lease_call_get := manual_call_get acquire_control_lease_rpc.
Definition fci_device_endpoint_acquire_control_lease_inspect := manual_inspect acquire_control_lease_rpc.
Definition fci_device_endpoint_acquire_control_lease_release := manual_release acquire_control_lease_rpc.
Definition fci_device_endpoint_acquire_control_lease_cancel := manual_cancel acquire_control_lease_rpc.
Definition fci_device_acquire_control_lease_call_t : Type := manual_handle.
Definition fci_device_acquire_control_lease_result_t : Type := manual_result.
Definition fci_device_acquire_control_lease_sync_state_t : Type := sync_frame.

(** *** [clear_error] *)

Definition fci_device_clear_error_client_start := managed_start clear_error_rpc.
Definition fci_device_clear_error_client_inspect := managed_inspect clear_error_rpc.
Definition fci_device_clear_error_client_decode := managed_decode clear_error_rpc.
Definition fci_device_clear_error_client_release := managed_release clear_error_rpc.
Definition fci_device_clear_error_encode_response := managed_encode_response clear_error_rpc.
Definition fci_device_clear_error_server_finish := managed_finish clear_error_rpc.
Definition fci_device_clear_error_request_inspect := managed_request_inspect clear_error_rpc.
Definition fci_device_clear_error_server_complete := managed_complete clear_error_rpc.
Definition fci_device_clear_error_server_reject := managed_reject clear_error_rpc.
Definition fci_device_clear_error_server_complete_value := managed_complete_value clear_error_rpc.
Definition fci_device_clear_error_encode_submission := managed_encode_submission clear_error_rpc.
Definition fci_device_endpoint_clear_error_prepare := endpoint_prepare wl_rpc_async_completion clear_error_rpc.
Definition fci_device_endpoint_clear_error_notify := endpoint_notify.
Definition fci_device_endpoint_clear_error_submit_at := endpoint_submit_at clear_error_rpc.
Definition fci_device_endpoint_clear_error_async := endpoint_async clear_error_rpc.
Definition fci_device_endpoint_clear_error_sync_done := sync_done.
Definition fci_device_endpoint_clear_error_proxy_submit := endpoint_proxy_submit clear_error_rpc.
Definition fci_device_endpoint_clear_error_sync (executor waiter : bool) (fuel : nat) :=
  endpoint_sync wl_rpc_async_completion sizeof alignof executor waiter fuel clear_error_rpc.
Definition fci_device_endpoint_clear_error_record_result := manual_record_result.
Definition fci_device_endpoint_clear_error_call := manual_call clear_error_rpc.
Definition fci_device_endpoint_clear_error_call_get := manual_call_get clear_error_rpc.
Definition fci_device_endpoint_clear_error_inspect := manual_inspect clear_error_rpc.
Definition fci_device_endpoint_clear_error_release := manual_release clear_error_rpc.
Definition fci_device_endpoint_clear_error_cancel := manual_cancel clear_error_rpc.
Definition fci_device_clear_error_call_t : Type := manual_handle.
Definition fci_device_clear_error_result_t : Type := manual_result.
Definition fci_device_clear_error_sync_state_t : Type := sync_frame.

(** *** [clear_faults] *)

Definition fci_device_clear_faults_client_start := managed_start clear_faults_rpc.
Definition fci_device_clear_faults_client_inspect := managed_inspect clear_faults_rpc.
Definition fci_device_clear_faults_client_decode := managed_decode clear_faults_rpc.
Definition fci_device_clear_faults_client_release := managed_release clear_faults_rpc.
Definition fci_device_clear_faults_encode_response := managed_encode_response clear_faults_rpc.
Definition fci_device_clear_faults_server_finish := managed_finish clear_faults_rpc.
Definition fci_device_clear_faults_request_inspect := managed_request_inspect clear_faults_rpc.
Definition fci_device_clear_faults_server_complete := managed_complete clear_faults_rpc.
Definition fci_device_clear_faults_server_reject := managed_reject clear_faults_rpc.
Definition fci_device_clear_faults_server_complete_value := managed_complete_value clear_faults_rpc.
Definition fci_device_clear_faults_encode_submission := managed_encode_submission clear_faults_rpc.
Definition fci_device_endpoint_clear_faults_prepare := endpoint_prepare wl_rpc_async_completion clear_faults_rpc.
Definition fci_device_endpoint_clear_faults_notify := endpoint_notify.
Definition fci_device_endpoint_clear_faults_submit_at := endpoint_submit_at clear_faults_rpc.
Definition fci_device_endpoint_clear_faults_async := endpoint_async clear_faults_rpc.
Definition fci_device_endpoint_clear_faults_sync_done := sync_done.
Definition fci_device_endpoint_clear_faults_proxy_submit := endpoint_proxy_submit clear_faults_rpc.
Definition fci_device_endpoint_clear_faults_sync (executor waiter : bool) (fuel : nat) :=
  endpoint_sync wl_rpc_async_completion sizeof alignof executor waiter fuel clear_faults_rpc.
Definition fci_device_endpoint_clear_faults_record_result := manual_record_result.
Definition fci_device_endpoint_clear_faults_call := manual_call clear_faults_rpc.
Definition fci_device_endpoint_clear_faults_call_get := manual_call_get clear_faults_rpc.
Definition fci_device_endpoint_clear_faults_inspect := manual_inspect clear_faults_rpc.
Definition fci_device_endpoint_clear_faults_release := manual_release clear_faults_rpc.
Definition fci_device_endpoint_clear_faults_cancel := manual_cancel clear_faults_rpc.
Definition fci_device_clear_faults_call_t : Type := manual_handle.
Definition fci_device_clear_faults_result_t : Type := manual_result.
Definition fci_device_clear_faults_sync_state_t : Type := sync_frame.

(** *** [emergency_stop] *)

Definition fci_device_emergency_stop_client_start := managed_start emergency_stop_rpc.
Definition fci_device_emergency_stop_client_inspect := managed_inspect emergency_stop_rpc.
Definition fci_device_emergency_stop_client_decode := managed_decode emergency_stop_rpc.
Definition fci_device_emergency_stop_client_release := managed_release emergency_stop_rpc.
Definition fci_device_emergency_stop_encode_response := managed_encode_response emergency_stop_rpc.
Definition fci_device_emergency_stop_server_finish := managed_finish emergency_stop_rpc.
Definition fci_device_emergency_stop_request_inspect := managed_request_inspect emergency_stop_rpc.
Definition fci_device_emergency_stop_server_complete := managed_complete emergency_stop_rpc.
Definition fci_device_emergency_stop_server_reject := managed_reject emergency_stop_rpc.
Definition fci_device_emergency_stop_server_complete_value := managed_complete_value emergency_stop_rpc.
Definition fci_device_emergency_stop_encode_submission := managed_encode_submission emergency_stop_rpc.
Definition fci_device_endpoint_emergency_stop_prepare := endpoint_prepare wl_rpc_async_completion emergency_stop_rpc.
Definition fci_device_endpoint_emergency_stop_notify := endpoint_notify.
Definition fci_device_endpoint_emergency_stop_submit_at := endpoint_submit_at emergency_stop_rpc.
Definition fci_device_endpoint_emergency_stop_async := endpoint_async emergency_stop_rpc.
Definition fci_device_endpoint_emergency_stop_sync_done := sync_done.
Definition fci_device_endpoint_emergency_stop_proxy_submit := endpoint_proxy_submit emergency_stop_rpc.
Definition fci_device_endpoint_emergency_stop_sync (executor waiter : bool) (fuel : nat) :=
  endpoint_sync wl_rpc_async_completion sizeof alignof executor waiter fuel emergency_stop_rpc.
Definition fci_device_endpoint_emergency_stop_record_result := manual_record_result.
Definition fci_device_endpoint_emergency_stop_call := manual_call emergency_stop_rpc.
Definition fci_device_endpoint_emergency_stop_call_get := manual_call_get emergency_stop_rpc.
Definition fci_device_endpoint_emergency_stop_inspect := manual_inspect emergency_stop_rpc.
Definition fci_device_endpoint_emergency_stop_release := manual_release emergency_stop_rpc.
Definition fci_device_endpoint_emergency_stop_cancel := manual_cancel emergency_stop_rpc.
Definition fci_device_emergency_stop_call_t : Type := manual_handle.
Definition fci_device_emergency_stop_result_t : Type := manual_result.
Definition fci_device_emergency_stop_sync_state_t : Type := sync_frame.

(** *** [get_device_info] *)

Definition fci_device_get_device_info_client_start := managed_start get_device_info_rpc.
Definition fci_device_get_device_info_client_inspect := managed_inspect get_device_info_rpc.
Definition fci_device_get_device_info_client_decode := managed_decode get_device_info_rpc.
Definition fci_device_get_device_info_client_release := managed_release get_device_info_rpc.
Definition fci_device_get_device_info_encode_response := managed_encode_response get_device_info_rpc.
Definition fci_device_get_device_info_server_finish := managed_finish get_device_info_rpc.
Definition fci_device_get_device_info_request_inspect := managed_request_inspect get_device_info_rpc.
Definition fci_device_get_device_info_server_complete := managed_complete get_device_info_rpc.
Definition fci_device_get_device_info_server_reject := managed_reject get_device_info_rpc.
Definition fci_device_get_device_info_server_complete_value := managed_complete_value get_device_info_rpc.
Definition fci_device_get_device_info_encode_submission := managed_encode_submission get_device_info_rpc.
Definition fci_device_endpoint_get_device_info_prepare := endpoint_prepare wl_rpc_async_completion get_device_info_rpc.
Definition fci_device_endpoint_get_device_info_notify := endpoint_notify.
Definition fci_device_endpoint_get_device_info_submit_at := endpoint_submit_at get_device_info_rpc.
Definition fci_device_endpoint_get_device_info_async := endpoint_async get_device_info_rpc.
Definition fci_device_endpoint_get_device_info_sync_done := sync_done.
Definition fci_device_endpoint_get_device_info_proxy_submit := endpoint_proxy_submit get_device_info_rpc.
Definition fci_device_endpoint_get_device_info_sync (executor waiter : bool) (fuel : nat) :=
  endpoint_sync wl_rpc_async_completion sizeof alignof executor waiter fuel get_device_info_rpc.
Definition fci_device_endpoint_get_device_info_record_result := manual_record_result.
Definition fci_device_endpoint_get_device_info_call := manual_call get_device_info_rpc.
Definition fci_device_endpoint_get_device_info_call_get := manual_call_get get_device_info_rpc.
Definition fci_device_endpoint_get_device_info_inspect := manual_inspect get_device_info_rpc.
Definition fci_device_endpoint_get_device_info_release := manual_release get_device_info_rpc.
Definition fci_device_endpoint_get_device_info_cancel := manual_cancel get_device_info_rpc.
Definition fci_device_get_device_info_call_t : Type := manual_handle.
Definition fci_device_get_device_info_result_t : Type := manual_result.
Definition fci_device_get_device_info_sync_state_t : Type := sync_frame.

(** *** [get_device_settings] *)

Definition fci_device_get_device_settings_client_start := managed_start get_device_settings_rpc.
Definition fci_device_get_device_settings_client_inspect := managed_inspect get_device_settings_rpc.
Definition fci_device_get_device_settings_client_decode := managed_decode get_device_settings_rpc.
Definition fci_device_get_device_settings_client_release := managed_release get_device_settings_rpc.
Definition fci_device_get_device_settings_encode_response := managed_encode_response get_device_settings_rpc.
Definition fci_device_get_device_settings_server_finish := managed_finish get_device_settings_rpc.
Definition fci_device_get_device_settings_request_inspect := managed_request_inspect get_device_settings_rpc.
Definition fci_device_get_device_settings_server_complete := managed_complete get_device_settings_rpc.
Definition fci_device_get_device_settings_server_reject := managed_reject get_device_settings_rpc.
Definition fci_device_get_device_settings_server_complete_value := managed_complete_value get_device_settings_rpc.
Definition fci_device_get_device_settings_encode_submission := managed_encode_submission get_device_settings_rpc.
Definition fci_device_endpoint_get_device_settings_prepare := endpoint_prepare wl_rpc_async_completion get_device_settings_rpc.
Definition fci_device_endpoint_get_device_settings_notify := endpoint_notify.
Definition fci_device_endpoint_get_device_settings_submit_at := endpoint_submit_at get_device_settings_rpc.
Definition fci_device_endpoint_get_device_settings_async := endpoint_async get_device_settings_rpc.
Definition fci_device_endpoint_get_device_settings_sync_done := sync_done.
Definition fci_device_endpoint_get_device_settings_proxy_submit := endpoint_proxy_submit get_device_settings_rpc.
Definition fci_device_endpoint_get_device_settings_sync (executor waiter : bool) (fuel : nat) :=
  endpoint_sync wl_rpc_async_completion sizeof alignof executor waiter fuel get_device_settings_rpc.
Definition fci_device_endpoint_get_device_settings_record_result := manual_record_result.
Definition fci_device_endpoint_get_device_settings_call := manual_call get_device_settings_rpc.
Definition fci_device_endpoint_get_device_settings_call_get := manual_call_get get_device_settings_rpc.
Definition fci_device_endpoint_get_device_settings_inspect := manual_inspect get_device_settings_rpc.
Definition fci_device_endpoint_get_device_settings_release := manual_release get_device_settings_rpc.
Definition fci_device_endpoint_get_device_settings_cancel := manual_cancel get_device_settings_rpc.
Definition fci_device_get_device_settings_call_t : Type := manual_handle.
Definition fci_device_get_device_settings_result_t : Type := manual_result.
Definition fci_device_get_device_settings_sync_state_t : Type := sync_frame.

(** *** [get_motor_feedback] *)

Definition fci_device_get_motor_feedback_client_start := managed_start get_motor_feedback_rpc.
Definition fci_device_get_motor_feedback_client_inspect := managed_inspect get_motor_feedback_rpc.
Definition fci_device_get_motor_feedback_client_decode := managed_decode get_motor_feedback_rpc.
Definition fci_device_get_motor_feedback_client_release := managed_release get_motor_feedback_rpc.
Definition fci_device_get_motor_feedback_encode_response := managed_encode_response get_motor_feedback_rpc.
Definition fci_device_get_motor_feedback_server_finish := managed_finish get_motor_feedback_rpc.
Definition fci_device_get_motor_feedback_request_inspect := managed_request_inspect get_motor_feedback_rpc.
Definition fci_device_get_motor_feedback_server_complete := managed_complete get_motor_feedback_rpc.
Definition fci_device_get_motor_feedback_server_reject := managed_reject get_motor_feedback_rpc.
Definition fci_device_get_motor_feedback_server_complete_value := managed_complete_value get_motor_feedback_rpc.
Definition fci_device_get_motor_feedback_encode_submission := managed_encode_submission get_motor_feedback_rpc.
Definition fci_device_endpoint_get_motor_feedback_prepare := endpoint_prepare wl_rpc_async_completion get_motor_feedback_rpc.
Definition fci_device_endpoint_get_motor_feedback_notify := endpoint_notify.
Definition fci_device_endpoint_get_motor_feedback_submit_at := endpoint_submit_at get_motor_feedback_rpc.
Definition fci_device_endpoint_get_motor_feedback_async := endpoint_async get_motor_feedback_rpc.
Definition fci_device_endpoint_get_motor_feedback_sync_done := sync_done.
Definition fci_device_endpoint_get_motor_feedback_proxy_submit := endpoint_proxy_submit get_motor_feedback_rpc.
Definition fci_device_endpoint_get_motor_feedback_sync (executor waiter : bool) (fuel : nat) :=
  endpoint_sync wl_rpc_async_completion sizeof alignof executor waiter fuel get_motor_feedback_rpc.
Definition fci_device_endpoint_get_motor_feedback_record_result := manual_record_result.
Definition fci_device_endpoint_get_motor_feedback_call := manual_call get_motor_feedback_rpc.
Definition fci_device_endpoint_get_motor_feedback_call_get := manual_call_get get_motor_feedback_rpc.
Definition fci_device_endpoint_get_motor_feedback_inspect := manual_inspect get_motor_feedback_rpc.
Definition fci_device_endpoint_get_motor_feedback_release := manual_release get_motor_feedback_rpc.
Definition fci_device_endpoint_get_motor_feedback_cancel := manual_cancel get_motor_feedback_rpc.
Definition fci_device_get_motor_feedback_call_t : Type := manual_handle.
Definition fci_device_get_motor_feedback_result_t : Type := manual_result.
Definition fci_device_get_motor_feedback_sync_state_t : Type := sync_frame.

(** *** [home] *)

Definition fci_device_home_client_start := managed_start home_rpc.
Definition fci_device_home_client_inspect := managed_inspect home_rpc.
Definition fci_device_home_client_decode := managed_decode home_rpc.
Definition fci_device_home_client_release := managed_release home_rpc.
Definition fci_device_home_encode_response := managed_encode_response home_rpc.
Definition fci_device_home_server_finish := managed_finish home_rpc.
Definition fci_device_home_request_inspect := managed_request_inspect home_rpc.
Definition fci_device_home_server_complete := managed_complete home_rpc.
Definition fci_device_home_server_reject := managed_reject home_rpc.
Definition fci_device_home_server_complete_value := managed_complete_value home_rpc.
Definition fci_device_home_encode_submission := managed_encode_submission home_rpc.
Definition fci_device_endpoint_home_prepare := endpoint_prepare wl_rpc_async_completion home_rpc.
Definition fci_device_endpoint_home_notify := endpoint_notify.
Definition fci_device_endpoint_home_submit_at := endpoint_submit_at home_rpc.
Definition fci_device_endpoint_home_async := endpoint_async home_rpc.
Definition fci_device_endpoint_home_sync_done := sync_done.
Definition fci_device_endpoint_home_proxy_submit := endpoint_proxy_submit home_rpc.
Definition fci_device_endpoint_home_sync (executor waiter : bool) (fuel : nat) :=
  endpoint_sync wl_rpc_async_completion sizeof alignof executor waiter fuel home_rpc.
Definition fci_device_endpoint_home_record_result := manual_record_result.
Definition fci_device_endpoint_home_call := manual_call home_rpc.
Definition fci_device_endpoint_home_call_get := manual_call_get home_rpc.
Definition fci_device_endpoint_home_inspect := manual_inspect home_rpc.
Definition fci_device_endpoint_home_release := manual_release home_rpc.
Definition fci_device_endpoint_home_cancel := manual_cancel home_rpc.
Definition fci_device_home_call_t : Type := manual_handle.
Definition fci_device_home_result_t : Type := manual_result.
Definition fci_device_home_sync_state_t : Type := sync_frame.

(** *** [motor_register_read] *)

Definition fci_device_motor_register_read_client_start := managed_start motor_register_read_rpc.
Definition fci_device_motor_register_read_client_inspect := managed_inspect motor_register_read_rpc.
Definition fci_device_motor_register_read_client_decode := managed_decode motor_register_read_rpc.
Definition fci_device_motor_register_read_client_release := managed_release motor_register_read_rpc.
Definition fci_device_motor_register_read_encode_response := managed_encode_response motor_register_read_rpc.
Definition fci_device_motor_register_read_server_finish := managed_finish motor_register_read_rpc.
Definition fci_device_motor_register_read_request_inspect := managed_request_inspect motor_register_read_rpc.
Definition fci_device_motor_register_read_server_complete := managed_complete motor_register_read_rpc.
Definition fci_device_motor_register_read_server_reject := managed_reject motor_register_read_rpc.
Definition fci_device_motor_register_read_server_complete_value := managed_complete_value motor_register_read_rpc.
Definition fci_device_motor_register_read_encode_submission := managed_encode_submission motor_register_read_rpc.
Definition fci_device_endpoint_motor_register_read_prepare := endpoint_prepare wl_rpc_async_completion motor_register_read_rpc.
Definition fci_device_endpoint_motor_register_read_notify := endpoint_notify.
Definition fci_device_endpoint_motor_register_read_submit_at := endpoint_submit_at motor_register_read_rpc.
Definition fci_device_endpoint_motor_register_read_async := endpoint_async motor_register_read_rpc.
Definition fci_device_endpoint_motor_register_read_sync_done := sync_done.
Definition fci_device_endpoint_motor_register_read_proxy_submit := endpoint_proxy_submit motor_register_read_rpc.
Definition fci_device_endpoint_motor_register_read_sync (executor waiter : bool) (fuel : nat) :=
  endpoint_sync wl_rpc_async_completion sizeof alignof executor waiter fuel motor_register_read_rpc.
Definition fci_device_endpoint_motor_register_read_record_result := manual_record_result.
Definition fci_device_endpoint_motor_register_read_call := manual_call motor_register_read_rpc.
Definition fci_device_endpoint_motor_register_read_call_get := manual_call_get motor_register_read_rpc.
Definition fci_device_endpoint_motor_register_read_inspect := manual_inspect motor_register_read_rpc.
Definition fci_device_endpoint_motor_register_read_release := manual_release motor_register_read_rpc.
Definition fci_device_endpoint_motor_register_read_cancel := manual_cancel motor_register_read_rpc.
Definition fci_device_motor_register_read_call_t : Type := manual_handle.
Definition fci_device_motor_register_read_result_t : Type := manual_result.
Definition fci_device_motor_register_read_sync_state_t : Type := sync_frame.

(** *** [motor_register_write] *)

Definition fci_device_motor_register_write_client_start := managed_start motor_register_write_rpc.
Definition fci_device_motor_register_write_client_inspect := managed_inspect motor_register_write_rpc.
Definition fci_device_motor_register_write_client_decode := managed_decode motor_register_write_rpc.
Definition fci_device_motor_register_write_client_release := managed_release motor_register_write_rpc.
Definition fci_device_motor_register_write_encode_response := managed_encode_response motor_register_write_rpc.
Definition fci_device_motor_register_write_server_finish := managed_finish motor_register_write_rpc.
Definition fci_device_motor_register_write_request_inspect := managed_request_inspect motor_register_write_rpc.
Definition fci_device_motor_register_write_server_complete := managed_complete motor_register_write_rpc.
Definition fci_device_motor_register_write_server_reject := managed_reject motor_register_write_rpc.
Definition fci_device_motor_register_write_server_complete_value := managed_complete_value motor_register_write_rpc.
Definition fci_device_motor_register_write_encode_submission := managed_encode_submission motor_register_write_rpc.
Definition fci_device_endpoint_motor_register_write_prepare := endpoint_prepare wl_rpc_async_completion motor_register_write_rpc.
Definition fci_device_endpoint_motor_register_write_notify := endpoint_notify.
Definition fci_device_endpoint_motor_register_write_submit_at := endpoint_submit_at motor_register_write_rpc.
Definition fci_device_endpoint_motor_register_write_async := endpoint_async motor_register_write_rpc.
Definition fci_device_endpoint_motor_register_write_sync_done := sync_done.
Definition fci_device_endpoint_motor_register_write_proxy_submit := endpoint_proxy_submit motor_register_write_rpc.
Definition fci_device_endpoint_motor_register_write_sync (executor waiter : bool) (fuel : nat) :=
  endpoint_sync wl_rpc_async_completion sizeof alignof executor waiter fuel motor_register_write_rpc.
Definition fci_device_endpoint_motor_register_write_record_result := manual_record_result.
Definition fci_device_endpoint_motor_register_write_call := manual_call motor_register_write_rpc.
Definition fci_device_endpoint_motor_register_write_call_get := manual_call_get motor_register_write_rpc.
Definition fci_device_endpoint_motor_register_write_inspect := manual_inspect motor_register_write_rpc.
Definition fci_device_endpoint_motor_register_write_release := manual_release motor_register_write_rpc.
Definition fci_device_endpoint_motor_register_write_cancel := manual_cancel motor_register_write_rpc.
Definition fci_device_motor_register_write_call_t : Type := manual_handle.
Definition fci_device_motor_register_write_result_t : Type := manual_result.
Definition fci_device_motor_register_write_sync_state_t : Type := sync_frame.

(** *** [motor_set_zero] *)

Definition fci_device_motor_set_zero_client_start := managed_start motor_set_zero_rpc.
Definition fci_device_motor_set_zero_client_inspect := managed_inspect motor_set_zero_rpc.
Definition fci_device_motor_set_zero_client_decode := managed_decode motor_set_zero_rpc.
Definition fci_device_motor_set_zero_client_release := managed_release motor_set_zero_rpc.
Definition fci_device_motor_set_zero_encode_response := managed_encode_response motor_set_zero_rpc.
Definition fci_device_motor_set_zero_server_finish := managed_finish motor_set_zero_rpc.
Definition fci_device_motor_set_zero_request_inspect := managed_request_inspect motor_set_zero_rpc.
Definition fci_device_motor_set_zero_server_complete := managed_complete motor_set_zero_rpc.
Definition fci_device_motor_set_zero_server_reject := managed_reject motor_set_zero_rpc.
Definition fci_device_motor_set_zero_server_complete_value := managed_complete_value motor_set_zero_rpc.
Definition fci_device_motor_set_zero_encode_submission := managed_encode_submission motor_set_zero_rpc.
Definition fci_device_endpoint_motor_set_zero_prepare := endpoint_prepare wl_rpc_async_completion motor_set_zero_rpc.
Definition fci_device_endpoint_motor_set_zero_notify := endpoint_notify.
Definition fci_device_endpoint_motor_set_zero_submit_at := endpoint_submit_at motor_set_zero_rpc.
Definition fci_device_endpoint_motor_set_zero_async := endpoint_async motor_set_zero_rpc.
Definition fci_device_endpoint_motor_set_zero_sync_done := sync_done.
Definition fci_device_endpoint_motor_set_zero_proxy_submit := endpoint_proxy_submit motor_set_zero_rpc.
Definition fci_device_endpoint_motor_set_zero_sync (executor waiter : bool) (fuel : nat) :=
  endpoint_sync wl_rpc_async_completion sizeof alignof executor waiter fuel motor_set_zero_rpc.
Definition fci_device_endpoint_motor_set_zero_record_result := manual_record_result.
Definition fci_device_endpoint_motor_set_zero_call := manual_call motor_set_zero_rpc.
Definition fci_device_endpoint_motor_set_zero_call_get := manual_call_get motor_set_zero_rpc.
Definition fci_device_endpoint_motor_set_zero_inspect := manual_inspect motor_set_zero_rpc.
Definition fci_device_endpoint_motor_set_zero_release := manual_release motor_set_zero_rpc.
Definition fci_device_endpoint_motor_set_zero_cancel := manual_cancel motor_set_zero_rpc.
Definition fci_device_motor_set_zero_call_t : Type := manual_handle.
Definition fci_device_motor_set_zero_result_t : Type := manual_result.
Definition fci_device_motor_set_zero_sync_state_t : Type := sync_frame.

(** *** [motor_store_parameters] *)

Definition fci_device_motor_store_parameters_client_start := managed_start motor_store_parameters_rpc.
Definition fci_device_motor_store_parameters_client_inspect := managed_inspect motor_store_parameters_rpc.
Definition fci_device_motor_store_parameters_client_decode := managed_decode motor_store_parameters_rpc.
Definition fci_device_motor_store_parameters_client_release := managed_release motor_store_parameters_rpc.
Definition fci_device_motor_store_parameters_encode_response := managed_encode_response motor_store_parameters_rpc.
Definition fci_device_motor_store_parameters_server_finish := managed_finish motor_store_parameters_rpc.
Definition fci_device_motor_store_parameters_request_inspect := managed_request_inspect motor_store_parameters_rpc.
Definition fci_device_motor_store_parameters_server_complete := managed_complete motor_store_parameters_rpc.
Definition fci_device_motor_store_parameters_server_reject := managed_reject motor_store_parameters_rpc.
Definition fci_device_motor_store_parameters_server_complete_value := managed_complete_value motor_store_parameters_rpc.
Definition fci_device_motor_store_parameters_encode_submission := managed_encode_submission motor_store_parameters_rpc.
Definition fci_device_endpoint_motor_store_parameters_prepare := endpoint_prepare wl_rpc_async_completion motor_store_parameters_rpc.
Definition fci_device_endpoint_motor_store_parameters_notify := endpoint_notify.
Definition fci_device_endpoint_motor_store_parameters_submit_at := endpoint_submit_at motor_store_parameters_rpc.
Definition fci_device_endpoint_motor_store_parameters_async := endpoint_async motor_store_parameters_rpc.
Definition fci_device_endpoint_motor_store_parameters_sync_done := sync_done.
Definition fci_device_endpoint_motor_store_parameters_proxy_submit := endpoint_proxy_submit motor_store_parameters_rpc.
Definition fci_device_endpoint_motor_store_parameters_sync (executor waiter : bool) (fuel : nat) :=
  endpoint_sync wl_rpc_async_completion sizeof alignof executor waiter fuel motor_store_parameters_rpc.
Definition fci_device_endpoint_motor_store_parameters_record_result := manual_record_result.
Definition fci_device_endpoint_motor_store_parameters_call := manual_call motor_store_parameters_rpc.
Definition fci_device_endpoint_motor_store_parameters_call_get := manual_call_get motor_store_parameters_rpc.
Definition fci_device_endpoint_motor_store_parameters_inspect := manual_inspect motor_store_parameters_rpc.
Definition fci_device_endpoint_motor_store_parameters_release := manual_release motor_store_parameters_rpc.
Definition fci_device_endpoint_motor_store_parameters_cancel := manual_cancel motor_store_parameters_rpc.
Definition fci_device_motor_store_parameters_call_t : Type := manual_handle.
Definition fci_device_motor_store_parameters_result_t : Type := manual_result.
Definition fci_device_motor_store_parameters_sync_state_t : Type := sync_frame.

(** *** [release_control_lease] *)

Definition fci_device_release_control_lease_client_start := managed_start release_control_lease_rpc.
Definition fci_device_release_control_lease_client_inspect := managed_inspect release_control_lease_rpc.
Definition fci_device_release_control_lease_client_decode := managed_decode release_control_lease_rpc.
Definition fci_device_release_control_lease_client_release := managed_release release_control_lease_rpc.
Definition fci_device_release_control_lease_encode_response := managed_encode_response release_control_lease_rpc.
Definition fci_device_release_control_lease_server_finish := managed_finish release_control_lease_rpc.
Definition fci_device_release_control_lease_request_inspect := managed_request_inspect release_control_lease_rpc.
Definition fci_device_release_control_lease_server_complete := managed_complete release_control_lease_rpc.
Definition fci_device_release_control_lease_server_reject := managed_reject release_control_lease_rpc.
Definition fci_device_release_control_lease_server_complete_value := managed_complete_value release_control_lease_rpc.
Definition fci_device_release_control_lease_encode_submission := managed_encode_submission release_control_lease_rpc.
Definition fci_device_endpoint_release_control_lease_prepare := endpoint_prepare wl_rpc_async_completion release_control_lease_rpc.
Definition fci_device_endpoint_release_control_lease_notify := endpoint_notify.
Definition fci_device_endpoint_release_control_lease_submit_at := endpoint_submit_at release_control_lease_rpc.
Definition fci_device_endpoint_release_control_lease_async := endpoint_async release_control_lease_rpc.
Definition fci_device_endpoint_release_control_lease_sync_done := sync_done.
Definition fci_device_endpoint_release_control_lease_proxy_submit := endpoint_proxy_submit release_control_lease_rpc.
Definition fci_device_endpoint_release_control_lease_sync (executor waiter : bool) (fuel : nat) :=
  endpoint_sync wl_rpc_async_completion sizeof alignof executor waiter fuel release_control_lease_rpc.
Definition fci_device_endpoint_release_control_lease_record_result := manual_record_result.
Definition fci_device_endpoint_release_control_lease_call := manual_call release_control_lease_rpc.
Definition fci_device_endpoint_release_control_lease_call_get := manual_call_get release_control_lease_rpc.
Definition fci_device_endpoint_release_control_lease_inspect := manual_inspect release_control_lease_rpc.
Definition fci_device_endpoint_release_control_lease_release := manual_release release_control_lease_rpc.
Definition fci_device_endpoint_release_control_lease_cancel := manual_cancel release_control_lease_rpc.
Definition fci_device_release_control_lease_call_t : Type := manual_handle.
Definition fci_device_release_control_lease_result_t : Type := manual_result.
Definition fci_device_release_control_lease_sync_state_t : Type := sync_frame.

(** *** [set_arm_control_mode] *)

Definition fci_device_set_arm_control_mode_client_start := managed_start set_arm_control_mode_rpc.
Definition fci_device_set_arm_control_mode_client_inspect := managed_inspect set_arm_control_mode_rpc.
Definition fci_device_set_arm_control_mode_client_decode := managed_decode set_arm_control_mode_rpc.
Definition fci_device_set_arm_control_mode_client_release := managed_release set_arm_control_mode_rpc.
Definition fci_device_set_arm_control_mode_encode_response := managed_encode_response set_arm_control_mode_rpc.
Definition fci_device_set_arm_control_mode_server_finish := managed_finish set_arm_control_mode_rpc.
Definition fci_device_set_arm_control_mode_request_inspect := managed_request_inspect set_arm_control_mode_rpc.
Definition fci_device_set_arm_control_mode_server_complete := managed_complete set_arm_control_mode_rpc.
Definition fci_device_set_arm_control_mode_server_reject := managed_reject set_arm_control_mode_rpc.
Definition fci_device_set_arm_control_mode_server_complete_value := managed_complete_value set_arm_control_mode_rpc.
Definition fci_device_set_arm_control_mode_encode_submission := managed_encode_submission set_arm_control_mode_rpc.
Definition fci_device_endpoint_set_arm_control_mode_prepare := endpoint_prepare wl_rpc_async_completion set_arm_control_mode_rpc.
Definition fci_device_endpoint_set_arm_control_mode_notify := endpoint_notify.
Definition fci_device_endpoint_set_arm_control_mode_submit_at := endpoint_submit_at set_arm_control_mode_rpc.
Definition fci_device_endpoint_set_arm_control_mode_async := endpoint_async set_arm_control_mode_rpc.
Definition fci_device_endpoint_set_arm_control_mode_sync_done := sync_done.
Definition fci_device_endpoint_set_arm_control_mode_proxy_submit := endpoint_proxy_submit set_arm_control_mode_rpc.
Definition fci_device_endpoint_set_arm_control_mode_sync (executor waiter : bool) (fuel : nat) :=
  endpoint_sync wl_rpc_async_completion sizeof alignof executor waiter fuel set_arm_control_mode_rpc.
Definition fci_device_endpoint_set_arm_control_mode_record_result := manual_record_result.
Definition fci_device_endpoint_set_arm_control_mode_call := manual_call set_arm_control_mode_rpc.
Definition fci_device_endpoint_set_arm_control_mode_call_get := manual_call_get set_arm_control_mode_rpc.
Definition fci_device_endpoint_set_arm_control_mode_inspect := manual_inspect set_arm_control_mode_rpc.
Definition fci_device_endpoint_set_arm_control_mode_release := manual_release set_arm_control_mode_rpc.
Definition fci_device_endpoint_set_arm_control_mode_cancel := manual_cancel set_arm_control_mode_rpc.
Definition fci_device_set_arm_control_mode_call_t : Type := manual_handle.
Definition fci_device_set_arm_control_mode_result_t : Type := manual_result.
Definition fci_device_set_arm_control_mode_sync_state_t : Type := sync_frame.

(** *** [set_arm_mode] *)

Definition fci_device_set_arm_mode_client_start := managed_start set_arm_mode_rpc.
Definition fci_device_set_arm_mode_client_inspect := managed_inspect set_arm_mode_rpc.
Definition fci_device_set_arm_mode_client_decode := managed_decode set_arm_mode_rpc.
Definition fci_device_set_arm_mode_client_release := managed_release set_arm_mode_rpc.
Definition fci_device_set_arm_mode_encode_response := managed_encode_response set_arm_mode_rpc.
Definition fci_device_set_arm_mode_server_finish := managed_finish set_arm_mode_rpc.
Definition fci_device_set_arm_mode_request_inspect := managed_request_inspect set_arm_mode_rpc.
Definition fci_device_set_arm_mode_server_complete := managed_complete set_arm_mode_rpc.
Definition fci_device_set_arm_mode_server_reject := managed_reject set_arm_mode_rpc.
Definition fci_device_set_arm_mode_server_complete_value := managed_complete_value set_arm_mode_rpc.
Definition fci_device_set_arm_mode_encode_submission := managed_encode_submission set_arm_mode_rpc.
Definition fci_device_endpoint_set_arm_mode_prepare := endpoint_prepare wl_rpc_async_completion set_arm_mode_rpc.
Definition fci_device_endpoint_set_arm_mode_notify := endpoint_notify.
Definition fci_device_endpoint_set_arm_mode_submit_at := endpoint_submit_at set_arm_mode_rpc.
Definition fci_device_endpoint_set_arm_mode_async := endpoint_async set_arm_mode_rpc.
Definition fci_device_endpoint_set_arm_mode_sync_done := sync_done.
Definition fci_device_endpoint_set_arm_mode_proxy_submit := endpoint_proxy_submit set_arm_mode_rpc.
Definition fci_device_endpoint_set_arm_mode_sync (executor waiter : bool) (fuel : nat) :=
  endpoint_sync wl_rpc_async_completion sizeof alignof executor waiter fuel set_arm_mode_rpc.
Definition fci_device_endpoint_set_arm_mode_record_result := manual_record_result.
Definition fci_device_endpoint_set_arm_mode_call := manual_call set_arm_mode_rpc.
Definition fci_device_endpoint_set_arm_mode_call_get := manual_call_get set_arm_mode_rpc.
Definition fci_device_endpoint_set_arm_mode_inspect := manual_inspect set_arm_mode_rpc.
Definition fci_device_endpoint_set_arm_mode_release := manual_release set_arm_mode_rpc.
Definition fci_device_endpoint_set_arm_mode_cancel := manual_cancel set_arm_mode_rpc.
Definition fci_device_set_arm_mode_call_t : Type := manual_handle.
Definition fci_device_set_arm_mode_result_t : Type := manual_result.
Definition fci_device_set_arm_mode_sync_state_t : Type := sync_frame.

(** *** [set_device_info] *)

Definition fci_device_set_device_info_client_start := managed_start set_device_info_rpc.
Definition fci_device_set_device_info_client_inspect := managed_inspect set_device_info_rpc.
Definition fci_device_set_device_info_client_decode := managed_decode set_device_info_rpc.
Definition fci_device_set_device_info_client_release := managed_release set_device_info_rpc.
Definition fci_device_set_device_info_encode_response := managed_encode_response set_device_info_rpc.
Definition fci_device_set_device_info_server_finish := managed_finish set_device_info_rpc.
Definition fci_device_set_device_info_request_inspect := managed_request_inspect set_device_info_rpc.
Definition fci_device_set_device_info_server_complete := managed_complete set_device_info_rpc.
Definition fci_device_set_device_info_server_reject := managed_reject set_device_info_rpc.
Definition fci_device_set_device_info_server_complete_value := managed_complete_value set_device_info_rpc.
Definition fci_device_set_device_info_encode_submission := managed_encode_submission set_device_info_rpc.
Definition fci_device_endpoint_set_device_info_prepare := endpoint_prepare wl_rpc_async_completion set_device_info_rpc.
Definition fci_device_endpoint_set_device_info_notify := endpoint_notify.
Definition fci_device_endpoint_set_device_info_submit_at := endpoint_submit_at set_device_info_rpc.
Definition fci_device_endpoint_set_device_info_async := endpoint_async set_device_info_rpc.
Definition fci_device_endpoint_set_device_info_sync_done := sync_done.
Definition fci_device_endpoint_set_device_info_proxy_submit := endpoint_proxy_submit set_device_info_rpc.
Definition fci_device_endpoint_set_device_info_sync (executor waiter : bool) (fuel : nat) :=
  endpoint_sync wl_rpc_async_completion sizeof alignof executor waiter fuel set_device_info_rpc.
Definition fci_device_endpoint_set_device_info_record_result := manual_record_result.
Definition fci_device_endpoint_set_device_info_call := manual_call set_device_info_rpc.
Definition fci_device_endpoint_set_device_info_call_get := manual_call_get set_device_info_rpc.
Definition fci_device_endpoint_set_device_info_inspect := manual_inspect set_device_info_rpc.
Definition fci_device_endpoint_set_device_info_release := manual_release set_device_info_rpc.
Definition fci_device_endpoint_set_device_info_cancel := manual_cancel set_device_info_rpc.
Definition fci_device_set_device_info_call_t : Type := manual_handle.
Definition fci_device_set_device_info_result_t : Type := manual_result.
Definition fci_device_set_device_info_sync_state_t : Type := sync_frame.

(** *** [set_device_settings] *)

Definition fci_device_set_device_settings_client_start := managed_start set_device_settings_rpc.
Definition fci_device_set_device_settings_client_inspect := managed_inspect set_device_settings_rpc.
Definition fci_device_set_device_settings_client_decode := managed_decode set_device_settings_rpc.
Definition fci_device_set_device_settings_client_release := managed_release set_device_settings_rpc.
Definition fci_device_set_device_settings_encode_response := managed_encode_response set_device_settings_rpc.
Definition fci_device_set_device_settings_server_finish := managed_finish set_device_settings_rpc.
Definition fci_device_set_device_settings_request_inspect := managed_request_inspect set_device_settings_rpc.
Definition fci_device_set_device_settings_server_complete := managed_complete set_device_settings_rpc.
Definition fci_device_set_device_settings_server_reject := managed_reject set_device_settings_rpc.
Definition fci_device_set_device_settings_server_complete_value := managed_complete_value set_device_settings_rpc.
Definition fci_device_set_device_settings_encode_submission := managed_encode_submission set_device_settings_rpc.
Definition fci_device_endpoint_set_device_settings_prepare := endpoint_prepare wl_rpc_async_completion set_device_settings_rpc.
Definition fci_device_endpoint_set_device_settings_notify := endpoint_notify.
Definition fci_device_endpoint_set_device_settings_submit_at := endpoint_submit_at set_device_settings_rpc.
Definition fci_device_endpoint_set_device_settings_async := endpoint_async set_device_settings_rpc.
Definition fci_device_endpoint_set_device_settings_sync_done := sync_done.
Definition fci_device_endpoint_set_device_settings_proxy_submit := endpoint_proxy_submit set_device_settings_rpc.
Definition fci_device_endpoint_set_device_settings_sync (executor waiter : bool) (fuel : nat) :=
  endpoint_sync wl_rpc_async_completion sizeof alignof executor waiter fuel set_device_settings_rpc.
Definition fci_device_endpoint_set_device_settings_record_result := manual_record_result.
Definition fci_device_endpoint_set_device_settings_call := manual_call set_device_settings_rpc.
Definition fci_device_endpoint_set_device_settings_call_get := manual_call_get set_device_settings_rpc.
Definition fci_device_endpoint_set_device_settings_inspect := manual_inspect set_device_settings_rpc.
Definition fci_device_endpoint_set_device_settings_release := manual_release set_device_settings_rpc.
Definition fci_device_endpoint_set_device_settings_cancel := manual_cancel set_device_settings_rpc.
Definition fci_device_set_device_settings_call_t : Type := manual_handle.
Definition fci_device_set_device_settings_result_t : Type := manual_result.
Definition fci_device_set_device_settings_sync_state_t : Type := sync_frame.

(** *** [set_gripper_control_mode] *)

Definition fci_device_set_gripper_control_mode_client_start := managed_start set_gripper_control_mode_rpc.
Definition fci_device_set_gripper_control_mode_client_inspect := managed_inspect set_gripper_control_mode_rpc.
Definition fci_device_set_gripper_control_mode_client_decode := managed_decode set_gripper_control_mode_rpc.
Definition fci_device_set_gripper_control_mode_client_release := managed_release set_gripper_control_mode_rpc.
Definition fci_device_set_gripper_control_mode_encode_response := managed_encode_response set_gripper_control_mode_rpc.
Definition fci_device_set_gripper_control_mode_server_finish := managed_finish set_gripper_control_mode_rpc.
Definition fci_device_set_gripper_control_mode_request_inspect := managed_request_inspect set_gripper_control_mode_rpc.
Definition fci_device_set_gripper_control_mode_server_complete := managed_complete set_gripper_control_mode_rpc.
Definition fci_device_set_gripper_control_mode_server_reject := managed_reject set_gripper_control_mode_rpc.
Definition fci_device_set_gripper_control_mode_server_complete_value := managed_complete_value set_gripper_control_mode_rpc.
Definition fci_device_set_gripper_control_mode_encode_submission := managed_encode_submission set_gripper_control_mode_rpc.
Definition fci_device_endpoint_set_gripper_control_mode_prepare := endpoint_prepare wl_rpc_async_completion set_gripper_control_mode_rpc.
Definition fci_device_endpoint_set_gripper_control_mode_notify := endpoint_notify.
Definition fci_device_endpoint_set_gripper_control_mode_submit_at := endpoint_submit_at set_gripper_control_mode_rpc.
Definition fci_device_endpoint_set_gripper_control_mode_async := endpoint_async set_gripper_control_mode_rpc.
Definition fci_device_endpoint_set_gripper_control_mode_sync_done := sync_done.
Definition fci_device_endpoint_set_gripper_control_mode_proxy_submit := endpoint_proxy_submit set_gripper_control_mode_rpc.
Definition fci_device_endpoint_set_gripper_control_mode_sync (executor waiter : bool) (fuel : nat) :=
  endpoint_sync wl_rpc_async_completion sizeof alignof executor waiter fuel set_gripper_control_mode_rpc.
Definition fci_device_endpoint_set_gripper_control_mode_record_result := manual_record_result.
Definition fci_device_endpoint_set_gripper_control_mode_call := manual_call set_gripper_control_mode_rpc.
Definition fci_device_endpoint_set_gripper_control_mode_call_get := manual_call_get set_gripper_control_mode_rpc.
Definition fci_device_endpoint_set_gripper_control_mode_inspect := manual_inspect set_gripper_control_mode_rpc.
Definition fci_device_endpoint_set_gripper_control_mode_release := manual_release set_gripper_control_mode_rpc.
Definition fci_device_endpoint_set_gripper_control_mode_cancel := manual_cancel set_gripper_control_mode_rpc.
Definition fci_device_set_gripper_control_mode_call_t : Type := manual_handle.
Definition fci_device_set_gripper_control_mode_result_t : Type := manual_result.
Definition fci_device_set_gripper_control_mode_sync_state_t : Type := sync_frame.

(** *** [set_zero] *)

Definition fci_device_set_zero_client_start := managed_start set_zero_rpc.
Definition fci_device_set_zero_client_inspect := managed_inspect set_zero_rpc.
Definition fci_device_set_zero_client_decode := managed_decode set_zero_rpc.
Definition fci_device_set_zero_client_release := managed_release set_zero_rpc.
Definition fci_device_set_zero_encode_response := managed_encode_response set_zero_rpc.
Definition fci_device_set_zero_server_finish := managed_finish set_zero_rpc.
Definition fci_device_set_zero_request_inspect := managed_request_inspect set_zero_rpc.
Definition fci_device_set_zero_server_complete := managed_complete set_zero_rpc.
Definition fci_device_set_zero_server_reject := managed_reject set_zero_rpc.
Definition fci_device_set_zero_server_complete_value := managed_complete_value set_zero_rpc.
Definition fci_device_set_zero_encode_submission := managed_encode_submission set_zero_rpc.
Definition fci_device_endpoint_set_zero_prepare := endpoint_prepare wl_rpc_async_completion set_zero_rpc.
Definition fci_device_endpoint_set_zero_notify := endpoint_notify.
Definition fci_device_endpoint_set_zero_submit_at := endpoint_submit_at set_zero_rpc.
Definition fci_device_endpoint_set_zero_async := endpoint_async set_zero_rpc.
Definition fci_device_endpoint_set_zero_sync_done := sync_done.
Definition fci_device_endpoint_set_zero_proxy_submit := endpoint_proxy_submit set_zero_rpc.
Definition fci_device_endpoint_set_zero_sync (executor waiter : bool) (fuel : nat) :=
  endpoint_sync wl_rpc_async_completion sizeof alignof executor waiter fuel set_zero_rpc.
Definition fci_device_endpoint_set_zero_record_result := manual_record_result.
Definition fci_device_endpoint_set_zero_call := manual_call set_zero_rpc.
Definition fci_device_endpoint_set_zero_call_get := manual_call_get set_zero_rpc.
Definition fci_device_endpoint_set_zero_inspect := manual_inspect set_zero_rpc.
Definition fci_device_endpoint_set_zero_release := manual_release set_zero_rpc.
Definition fci_device_endpoint_set_zero_cancel := manual_cancel set_zero_rpc.
Definition fci_device_set_zero_call_t : Type := manual_handle.
Definition fci_device_set_zero_result_t : Type := manual_result.
Definition fci_device_set_zero_sync_state_t : Type := sync_frame.

End api.

(** ** The RPCs of version 1 *)

Section legacy.
Context {W : Type} `{Link W}.

(** *** [get_boot_status] *)

Definition fci_device_get_boot_status_client_finish_start : Z -> fci_device_send_result_t -> W -> fci_device_runtime_result_t * W := client_finish_start.
Definition fci_device_get_boot_status_client_start : wstruct -> Z -> Z -> W -> fci_device_runtime_result_t * W := client_start get_boot_status_rpc.
Definition fci_device_get_boot_status_client_inspect : Z -> W -> res wl_rpc_err wl_rpc_client_result_t := client_inspect get_boot_status_rpc.
Definition fci_device_get_boot_status_client_decode := client_decode get_boot_status_rpc.
Definition fci_device_get_boot_status_client_release : Z -> W -> wl_rpc_err * W := client_release get_boot_status_rpc.
Definition fci_device_get_boot_status_server_finish := legacy_finish get_boot_status_rpc.
Definition fci_device_get_boot_status_server_complete := legacy_complete get_boot_status_rpc.
Definition fci_device_get_boot_status_server_reject := legacy_reject get_boot_status_rpc.
Definition fci_device_endpoint_get_boot_status_start : wstruct -> Z -> W -> fci_device_runtime_result_t * W := endpoint_start get_boot_status_rpc.
Definition fci_device_endpoint_get_boot_status_inspect : Z -> W -> res wl_rpc_err wl_rpc_client_result_t := client_inspect get_boot_status_rpc.
Definition fci_device_endpoint_get_boot_status_release : Z -> W -> wl_rpc_err * W := client_release get_boot_status_rpc.
Definition fci_device_endpoint_get_boot_status_complete := legacy_endpoint_complete get_boot_status_rpc.

(** *** [reboot] *)

Definition fci_device_reboot_client_finish_start : Z -> fci_device_send_result_t -> W -> fci_device_runtime_result_t * W := client_finish_start.
Definition fci_device_reboot_client_start : wstruct -> Z -> Z -> W -> fci_device_runtime_result_t * W := client_start reboot_rpc.
Definition fci_device_reboot_client_inspect : Z -> W -> res wl_rpc_err wl_rpc_client_result_t := client_inspect reboot_rpc.
Definition fci_device_reboot_client_decode := client_decode reboot_rpc.
Definition fci_device_reboot_client_release : Z -> W -> wl_rpc_err * W := client_release reboot_rpc.
Definition fci_device_reboot_server_finish := legacy_finish reboot_rpc.
Definition fci_device_reboot_server_complete := legacy_complete reboot_rpc.
Definition fci_device_reboot_server_reject := legacy_reject reboot_rpc.
Definition fci_device_endpoint_reboot_start : wstruct -> Z -> W -> fci_device_runtime_result_t * W := endpoint_start reboot_rpc.
Definition fci_device_endpoint_reboot_inspect : Z -> W -> res wl_rpc_err wl_rpc_client_result_t := client_inspect reboot_rpc.
Definition fci_device_endpoint_reboot_release : Z -> W -> wl_rpc_err * W := client_release reboot_rpc.
Definition fci_device_endpoint_reboot_complete := legacy_endpoint_complete reboot_rpc.

(** *** [start_upgrade] *)

Definition fci_device_start_upgrade_client_finish_start : Z -> fci_device_send_result_t -> W -> fci_device_runtime_result_t * W := client_finish_start.
Definition fci_device_start_upgrade_client_start : wstruct -> Z -> Z -> W -> fci_device_runtime_result_t * W := client_start start_upgrade_rpc.
Definition fci_device_start_upgrade_client_inspect : Z -> W -> res wl_rpc_err wl_rpc_client_result_t := client_inspect start_upgrade_rpc.
Definition fci_device_start_upgrade_client_decode := client_decode start_upgrade_rpc.
Definition fci_device_start_upgrade_client_release : Z -> W -> wl_rpc_err * W := client_release start_upgrade_rpc.
Definition fci_device_start_upgrade_server_finish := legacy_finish start_upgrade_rpc.
Definition fci_device_start_upgrade_server_complete := legacy_complete start_upgrade_rpc.
Definition fci_device_start_upgrade_server_reject := legacy_reject start_upgrade_rpc.
Definition fci_device_endpoint_start_upgrade_start : wstruct -> Z -> W -> fci_device_runtime_result_t * W := endpoint_start start_upgrade_rpc.
Definition fci_device_endpoint_start_upgrade_inspect : Z -> W -> res wl_rpc_err wl_rpc_client_result_t := client_inspect start_upgrade_rpc.
Definition fci_device_endpoint_start_upgrade_release : Z -> W -> wl_rpc_err * W := client_release start_upgrade_rpc.
Definition fci_device_endpoint_start_upgrade_complete := legacy_endpoint_complete start_upgrade_rpc.

End legacy.

(** ** The retained messages *)

Section retained.
Variable sizeof alignof : latest -> Z.

Definition fci_device_arm_status_latest_acquire := latest_acquire sizeof alignof ArmStatusLatest.
Definition fci_device_arm_status_latest_release := latest_release ArmStatusLatest.
Definition fci_device_endpoint_read_arm_status := endpoint_read sizeof alignof ArmStatusLatest.
Definition arm_status_event : event_case := fun e rt _ => o ← retained_case sizeof alignof ArmStatusLatest e rt; mret (o, rt).
Definition fci_device_motor_feedback_latest_acquire := latest_acquire sizeof alignof MotorFeedbackLatest.
Definition fci_device_motor_feedback_latest_release := latest_release MotorFeedbackLatest.
Definition fci_device_endpoint_read_motor_feedback := endpoint_read sizeof alignof MotorFeedbackLatest.
Definition motor_feedback_event : event_case := fun e rt _ => o ← retained_case sizeof alignof MotorFeedbackLatest e rt; mret (o, rt).
Definition fci_device_arm_diagnostics_latest_acquire := latest_acquire sizeof alignof ArmDiagnosticsLatest.
Definition fci_device_arm_diagnostics_latest_release := latest_release ArmDiagnosticsLatest.
Definition fci_device_endpoint_read_arm_diagnostics := endpoint_read sizeof alignof ArmDiagnosticsLatest.
Definition arm_diagnostics_event : event_case := fun e rt _ => o ← retained_case sizeof alignof ArmDiagnosticsLatest e rt; mret (o, rt).
Definition bulk_status_event : event_case := fun e rt _ => bulk_status_case e rt.

(** The switch of [fci_device_runtime_dispatch_event]. *)
Definition all_cases : list (Z * event_case) :=
  [(24577, arm_status_event); (24578, motor_feedback_event); (24580, arm_diagnostics_event);
   (28708, bulk_status_event)] ++ event_cases.
End retained.

(** The dispatch of an event is the case of its message, one of 48.
    The cases share their code (by the sort of the message), and the switch is
    decided from the tables of RPCs; what it does is for every message id the
    case that the program writes for that id, and an id without one is an unknown
    message. *)
Theorem dispatch_by_case sizeof alignof e rt now :
  dispatch_case sizeof alignof e rt now =
  match List.find (fun '(id, _) => ev_message_id e =? id) (all_cases sizeof alignof) with
  | Some (_, handle) => handle e rt now
  | None => mret ((FCI_DEVICE_RUNTIME_UNKNOWN_MESSAGE, DETAIL_NONE), rt)
  end.
Proof.
  unfold dispatch_case, case_of, all_cases, event_cases. set (m := ev_message_id e).
  cbn [existsb List.find app managed_rpcs legacy_rpcs rpc_request_id rpc_response_id mk_rpc].
  repeat match goal with
  | |- context [rpc_request_id ?c] =>
      let v := eval vm_compute in (rpc_request_id c) in change (rpc_request_id c) with v
  | |- context [rpc_response_id ?c] =>
      let v := eval vm_compute in (rpc_response_id c) in change (rpc_response_id c) with v
  end.
  repeat match goal with |- context [m =? ?k] => destruct (Z.eqb_spec m k) as [->|?]; [reflexivity|] end.
  reflexivity.
Qed.
