(* ===== verification/Bindings.v ===== *)
(** * Bindings

    [generated/wirelink/codec/fci_device_bindings.c]: dispatching an event to the
    handler of its message, with counters of what became of the events, and
    sending a message; and the functions of [generated/wirelink/host/fci_device_runtime.h]
    that send with the delivery of the binding.  The generator writes lines 21-46
    and 1772-1787 once per message, of which there are 67. *)

From S2P Require Import Prelude WlcWire WlcSchema WlcCodec FciMessages Endpoint EndpointOps FciRpc Prog RuntimeCalls.

(** ** Data *)

Inductive fci_device_dispatch_domain :=
| FCI_DEVICE_DISPATCH_OK | FCI_DEVICE_DISPATCH_NON_RX | FCI_DEVICE_DISPATCH_UNKNOWN_MESSAGE
| FCI_DEVICE_DISPATCH_MISSING_ROUTE | FCI_DEVICE_DISPATCH_MISSING_SCRATCH
| FCI_DEVICE_DISPATCH_CODEC_ERROR | FCI_DEVICE_DISPATCH_HANDLER_ERROR
| FCI_DEVICE_DISPATCH_INVALID_ARGUMENT.
#[global] Instance fci_device_dispatch_domain_eq_dec : EqDecision fci_device_dispatch_domain.
Proof. solve_decision. Defined.

(** [fci_device_dispatch_result_t]. *)
Record dispatch_result := {
  dr_domain : fci_device_dispatch_domain;
  dr_message_id : Z;
  dr_event_type : wl_event_type;
  dr_codec_status : wl_codec_status;
  dr_handler_result : Z
}.

(** [fci_device_dispatch_counters_t], by the member. *)
Inductive counter :=
| delivered | non_rx | unknown_message | missing_route | missing_scratch | codec_failure
| handler_failure.
#[global] Instance counter_eq_dec : EqDecision counter.
Proof. solve_decision. Defined.

(** A route: the functions an application registers are named by numbers. *)
Record route := {
  ro_scratch : option wstruct;
  ro_handler : option Z;
  ro_user_data : Z
}.

(** [fci_device_router_t]: its routes by the id of their message. *)
Record fci_device_router_t := {
  ru_routes : Z -> route;
  ru_counters : counter -> Z
}.

Definition UINT32_MAX : Z := 4294967295.

(** [fci_device_count] of a member. *)
Definition fci_device_count (k : counter) (r : fci_device_router_t) : fci_device_router_t :=
  {| ru_routes := ru_routes r;
     ru_counters := fun j =>
       if decide (j = k)
       then if ru_counters r j =? UINT32_MAX then ru_counters r j else ru_counters r j + 1
       else ru_counters r j |}.

Definition set_scratch (id : Z) (m : wstruct) (r : fci_device_router_t) : fci_device_router_t :=
  {| ru_routes := fun i =>
       if i =? id
       then {| ro_scratch := Some m; ro_handler := ro_handler (ru_routes r i);
               ro_user_data := ro_user_data (ru_routes r i) |}
       else ru_routes r i;
     ru_counters := ru_counters r |}.

Inductive route_call : Type -> Type :=
| Route_handler (handler user_data : Z) (message : wstruct) (reliable : bool) : route_call Z
| Release (e : wl_event_t) : route_call unit.

Abbreviation rop := (prog route_call).

(** ** A case of the switch *)

Definition of_event (e : wl_event_t) (domain : fci_device_dispatch_domain) (codec : wl_codec_status)
    (handled : Z) : dispatch_result :=
  {| dr_domain := domain; dr_message_id := ev_message_id e; dr_event_type := ev_type e;
     dr_codec_status := codec; dr_handler_result := handled |}.

(** Lines 21-46. *)
Definition dispatch_route (d : wlc_desc) (id : Z) (e : wl_event_t) (router : option fci_device_router_t)
    : rop (dispatch_result * option fci_device_router_t) :=
  match router with
  | None => mret (of_event e FCI_DEVICE_DISPATCH_MISSING_ROUTE WL_CODEC_OK 0, None)
  | Some r =>
      match ro_handler (ru_routes r id) with
      | None =>
          mret (of_event e FCI_DEVICE_DISPATCH_MISSING_ROUTE WL_CODEC_OK 0,
                Some (fci_device_count missing_route r))
      | Some handler =>
          match ro_scratch (ru_routes r id) with
          | None =>
              mret (of_event e FCI_DEVICE_DISPATCH_MISSING_SCRATCH WL_CODEC_OK 0,
                    Some (fci_device_count missing_scratch r))
          | Some scratch =>
              let '(codec, message) := wlc_decode d (ev_payload e) scratch in
              let r := set_scratch id message r in
              if negb (bool_decide (codec = WL_CODEC_OK)) then
                mret (of_event e FCI_DEVICE_DISPATCH_CODEC_ERROR codec 0,
                      Some (fci_device_count codec_failure r))
              else
                handled ← call (Route_handler handler (ro_user_data (ru_routes r id)) message
                                  (bool_decide (ev_type e = WL_EVT_RELIABLE_RX)));
                mret (if handled =? 0
                      then (of_event e FCI_DEVICE_DISPATCH_OK codec handled,
                            Some (fci_device_count delivered r))
                      else (of_event e FCI_DEVICE_DISPATCH_HANDLER_ERROR codec handled,
                            Some (fci_device_count handler_failure r)))
          end
      end
  end.

Definition route_case : Type :=
  wl_event_t -> option fci_device_router_t -> rop (dispatch_result * option fci_device_router_t).

Definition semantic_version_case : route_case := dispatch_route semantic_version_desc 20737.
Definition device_info_case : route_case := dispatch_route device_info_desc 20738.
Definition device_settings_case : route_case := dispatch_route device_settings_desc 20739.
Definition arm_status_case : route_case := dispatch_route arm_status_desc 24577.
Definition motor_feedback_case : route_case := dispatch_route motor_feedback_desc 24578.
Definition arm_diagnostics_case : route_case := dispatch_route arm_diagnostics_desc 24580.
Definition set_zero_request_case : route_case := dispatch_route set_zero_request_desc 24839.
Definition set_zero_response_case : route_case := dispatch_route set_zero_response_desc 24840.
Definition clear_error_request_case : route_case := dispatch_route clear_error_request_desc 24841.
Definition clear_error_response_case : route_case := dispatch_route clear_error_response_desc 24842.
Definition home_request_case : route_case := dispatch_route home_request_desc 25089.
Definition home_response_case : route_case := dispatch_route home_response_desc 25090.
Definition clear_faults_request_case : route_case := dispatch_route clear_faults_request_desc 25093.
Definition clear_faults_response_case : route_case := dispatch_route clear_faults_response_desc 25094.
Definition acquire_control_lease_request_case : route_case := dispatch_route acquire_control_lease_request_desc 25097.
Definition acquire_control_lease_response_case : route_case := dispatch_route acquire_control_lease_response_desc 25098.
Definition release_control_lease_request_case : route_case := dispatch_route release_control_lease_request_desc 25099.
Definition release_control_lease_response_case : route_case := dispatch_route release_control_lease_response_desc 25100.
Definition get_motor_feedback_request_case : route_case := dispatch_route get_motor_feedback_request_desc 25107.
Definition get_motor_feedback_response_case : route_case := dispatch_route get_motor_feedback_response_desc 25108.
Definition get_device_info_request_case : route_case := dispatch_route get_device_info_request_desc 25109.
Definition get_device_info_response_case : route_case := dispatch_route get_device_info_response_desc 25110.
Definition set_device_info_request_case : route_case := dispatch_route set_device_info_request_desc 25111.
Definition set_device_info_response_case : route_case := dispatch_route set_device_info_response_desc 25112.
Definition set_arm_control_mode_request_case : route_case := dispatch_route set_arm_control_mode_request_desc 25113.
Definition set_arm_control_mode_response_case : route_case := dispatch_route set_arm_control_mode_response_desc 25114.
Definition set_gripper_control_mode_request_case : route_case := dispatch_route set_gripper_control_mode_request_desc 25115.
Definition set_gripper_control_mode_response_case : route_case := dispatch_route set_gripper_control_mode_response_desc 25116.
Definition motor_register_read_request_case : route_case := dispatch_route motor_register_read_request_desc 25117.
Definition motor_register_read_response_case : route_case := dispatch_route motor_register_read_response_desc 25118.
Definition motor_register_write_request_case : route_case := dispatch_route motor_register_write_request_desc 25119.
Definition motor_register_write_response_case : route_case := dispatch_route motor_register_write_response_desc 25120.
Definition motor_store_parameters_request_case : route_case := dispatch_route motor_store_parameters_request_desc 25121.
Definition motor_store_parameters_response_case : route_case := dispatch_route motor_store_parameters_response_desc 25122.
Definition motor_set_zero_request_case : route_case := dispatch_route motor_set_zero_request_desc 25123.
Definition motor_set_zero_response_case : route_case := dispatch_route motor_set_zero_response_desc 25124.
Definition set_arm_mode_request_case : route_case := dispatch_route set_arm_mode_request_desc 25125.
Definition set_arm_mode_response_case : route_case := dispatch_route set_arm_mode_response_desc 25126.
Definition get_device_settings_request_case : route_case := dispatch_route get_device_settings_request_desc 25128.
Definition get_device_settings_response_case : route_case := dispatch_route get_device_settings_response_desc 25129.
Definition set_device_settings_request_case : route_case := dispatch_route set_device_settings_request_desc 25130.
Definition set_device_settings_response_case : route_case := dispatch_route set_device_settings_response_desc 25131.
Definition joint_mit_command_case : route_case := dispatch_route joint_mit_command_desc 25345.
Definition emergency_stop_request_case : route_case := dispatch_route emergency_stop_request_desc 25347.
Definition emergency_stop_response_case : route_case := dispatch_route emergency_stop_response_desc 25348.
Definition gripper_mit_command_case : route_case := dispatch_route gripper_mit_command_desc 25349.
Definition joint_position_velocity_command_case : route_case := dispatch_route joint_position_velocity_command_desc 25350.
Definition joint_velocity_command_case : route_case := dispatch_route joint_velocity_command_desc 25351.
Definition joint_pvt_command_case : route_case := dispatch_route joint_pvt_command_desc 25352.
Definition cartesian_pose_command_case : route_case := dispatch_route cartesian_pose_command_desc 25353.
Definition cartesian_velocity_command_case : route_case := dispatch_route cartesian_velocity_command_desc 25354.
Definition gripper_position_velocity_command_case : route_case := dispatch_route gripper_position_velocity_command_desc 25361.
Definition gripper_velocity_command_case : route_case := dispatch_route gripper_velocity_command_desc 25362.
Definition gripper_pvt_command_case : route_case := dispatch_route gripper_pvt_command_desc 25363.
Definition image_version_case : route_case := dispatch_route image_version_desc 28689.
Definition boot_status_info_case : route_case := dispatch_route boot_status_info_desc 28690.
Definition bulk_begin_case : route_case := dispatch_route bulk_begin_desc 28704.
Definition bulk_chunk_case : route_case := dispatch_route bulk_chunk_desc 28705.
Definition bulk_end_case : route_case := dispatch_route bulk_end_desc 28706.
Definition bulk_abort_case : route_case := dispatch_route bulk_abort_desc 28707.
Definition bulk_status_case : route_case := dispatch_route bulk_status_desc 28708.
Definition get_boot_status_request_case : route_case := dispatch_route get_boot_status_request_desc 28928.
Definition get_boot_status_response_case : route_case := dispatch_route get_boot_status_response_desc 28929.
Definition start_upgrade_request_case : route_case := dispatch_route start_upgrade_request_desc 28930.
Definition start_upgrade_response_case : route_case := dispatch_route start_upgrade_response_desc 28931.
Definition reboot_request_case : route_case := dispatch_route reboot_request_desc 28932.
Definition reboot_response_case : route_case := dispatch_route reboot_response_desc 28933.

(** The switch. *)
Definition route_cases : list (Z * route_case) := [
  (20737, semantic_version_case);
  (20738, device_info_case);
  (20739, device_settings_case);
  (24577, arm_status_case);
  (24578, motor_feedback_case);
  (24580, arm_diagnostics_case);
  (24839, set_zero_request_case);
  (24840, set_zero_response_case);
  (24841, clear_error_request_case);
  (24842, clear_error_response_case);
  (25089, home_request_case);
  (25090, home_response_case);
  (25093, clear_faults_request_case);
  (25094, clear_faults_response_case);
  (25097, acquire_control_lease_request_case);
  (25098, acquire_control_lease_response_case);
  (25099, release_control_lease_request_case);
  (25100, release_control_lease_response_case);
  (25107, get_motor_feedback_request_case);
  (25108, get_motor_feedback_response_case);
  (25109, get_device_info_request_case);
  (25110, get_device_info_response_case);
  (25111, set_device_info_request_case);
  (25112, set_device_info_response_case);
  (25113, set_arm_control_mode_request_case);
  (25114, set_arm_control_mode_response_case);
  (25115, set_gripper_control_mode_request_case);
  (25116, set_gripper_control_mode_response_case);
  (25117, motor_register_read_request_case);
  (25118, motor_register_read_response_case);
  (25119, motor_register_write_request_case);
  (25120, motor_register_write_response_case);
  (25121, motor_store_parameters_request_case);
  (25122, motor_store_parameters_response_case);
  (25123, motor_set_zero_request_case);
  (25124, motor_set_zero_response_case);
  (25125, set_arm_mode_request_case);
  (25126, set_arm_mode_response_case);
  (25128, get_device_settings_request_case);
  (25129, get_device_settings_response_case);
  (25130, set_device_settings_request_case);
  (25131, set_device_settings_response_case);
  (25345, joint_mit_command_case);
  (25347, emergency_stop_request_case);
  (25348, emergency_stop_response_case);
  (25349, gripper_mit_command_case);
  (25350, joint_position_velocity_command_case);
  (25351, joint_velocity_command_case);
  (25352, joint_pvt_command_case);
  (25353, cartesian_pose_command_case);
  (25354, cartesian_velocity_command_case);
  (25361, gripper_position_velocity_command_case);
  (25362, gripper_velocity_command_case);
  (25363, gripper_pvt_command_case);
  (28689, image_version_case);
  (28690, boot_status_info_case);
  (28704, bulk_begin_case);
  (28705, bulk_chunk_case);
  (28706, bulk_end_case);
  (28707, bulk_abort_case);
  (28708, bulk_status_case);
  (28928, get_boot_status_request_case);
  (28929, get_boot_status_response_case);
  (28930, start_upgrade_request_case);
  (28931, start_upgrade_response_case);
  (28932, reboot_request_case);
  (28933, reboot_response_case)].

Definition dispatch_switch (e : wl_event_t) (router : option fci_device_router_t)
    : rop (dispatch_result * option fci_device_router_t) :=
  '(result, router) ←
    match List.find (fun '(id, _) => ev_message_id e =? id) route_cases with
    | Some (_, handle) => handle e router
    | None =>
        mret (of_event e FCI_DEVICE_DISPATCH_UNKNOWN_MESSAGE WL_CODEC_OK 0,
              fci_device_count unknown_message <$> router)
    end;
  call (Release e) ;;
  mret (result, router).

(** [fci_device_dispatch_event]; [ctx] and [event] may be null. *)
Definition fci_device_dispatch_event (ctx : bool) (event : option wl_event_t)
    (router : option fci_device_router_t) : rop (dispatch_result * option fci_device_router_t) :=
  match event with
  | None =>
      mret ({| dr_domain := FCI_DEVICE_DISPATCH_INVALID_ARGUMENT; dr_message_id := 0;
               dr_event_type := WL_EVT_NONE; dr_codec_status := WL_CODEC_OK; dr_handler_result := 0 |},
            router)
  | Some e =>
      if negb (is_rx e) then
        mret (of_event e FCI_DEVICE_DISPATCH_NON_RX WL_CODEC_OK 0, fci_device_count non_rx <$> router)
      else if negb ctx then mret (of_event e FCI_DEVICE_DISPATCH_INVALID_ARGUMENT WL_CODEC_OK 0, router)
      else dispatch_switch e router
  end.

(** ** Sending *)

Section send.
Context {W : Type} `{Link W}.

Definition fci_device_semantic_version_send : wstruct -> bool -> Z -> W -> fci_device_send_result_t * W :=
  message_send semantic_version_desc 20737.
Definition fci_device_device_info_send : wstruct -> bool -> Z -> W -> fci_device_send_result_t * W :=
  message_send device_info_desc 20738.
Definition fci_device_device_settings_send : wstruct -> bool -> Z -> W -> fci_device_send_result_t * W :=
  message_send device_settings_desc 20739.
Definition fci_device_arm_status_send : wstruct -> bool -> Z -> W -> fci_device_send_result_t * W :=
  message_send arm_status_desc 24577.
Definition fci_device_motor_feedback_send : wstruct -> bool -> Z -> W -> fci_device_send_result_t * W :=
  message_send motor_feedback_desc 24578.
Definition fci_device_arm_diagnostics_send : wstruct -> bool -> Z -> W -> fci_device_send_result_t * W :=
  message_send arm_diagnostics_desc 24580.
Definition fci_device_set_zero_request_send : wstruct -> bool -> Z -> W -> fci_device_send_result_t * W :=
  message_send set_zero_request_desc 24839.
Definition fci_device_set_zero_response_send : wstruct -> bool -> Z -> W -> fci_device_send_result_t * W :=
  message_send set_zero_response_desc 24840.
Definition fci_device_clear_error_request_send : wstruct -> bool -> Z -> W -> fci_device_send_result_t * W :=
  message_send clear_error_request_desc 24841.
Definition fci_device_clear_error_response_send : wstruct -> bool -> Z -> W -> fci_device_send_result_t * W :=
  message_send clear_error_response_desc 24842.
Definition fci_device_home_request_send : wstruct -> bool -> Z -> W -> fci_device_send_result_t * W :=
  message_send home_request_desc 25089.
Definition fci_device_home_response_send : wstruct -> bool -> Z -> W -> fci_device_send_result_t * W :=
  message_send home_response_desc 25090.
Definition fci_device_clear_faults_request_send : wstruct -> bool -> Z -> W -> fci_device_send_result_t * W :=
  message_send clear_faults_request_desc 25093.
Definition fci_device_clear_faults_response_send : wstruct -> bool -> Z -> W -> fci_device_send_result_t * W :=
  message_send clear_faults_response_desc 25094.
Definition fci_device_acquire_control_lease_request_send : wstruct -> bool -> Z -> W -> fci_device_send_result_t * W :=
  message_send acquire_control_lease_request_desc 25097.
Definition fci_device_acquire_control_lease_response_send : wstruct -> bool -> Z -> W -> fci_device_send_result_t * W :=
  message_send acquire_control_lease_response_desc 25098.
Definition fci_device_release_control_lease_request_send : wstruct -> bool -> Z -> W -> fci_device_send_result_t * W :=
  message_send release_control_lease_request_desc 25099.
Definition fci_device_release_control_lease_response_send : wstruct -> bool -> Z -> W -> fci_device_send_result_t * W :=
  message_send release_control_lease_response_desc 25100.
Definition fci_device_get_motor_feedback_request_send : wstruct -> bool -> Z -> W -> fci_device_send_result_t * W :=
  message_send get_motor_feedback_request_desc 25107.
Definition fci_device_get_motor_feedback_response_send : wstruct -> bool -> Z -> W -> fci_device_send_result_t * W :=
  message_send get_motor_feedback_response_desc 25108.
Definition fci_device_get_device_info_request_send : wstruct -> bool -> Z -> W -> fci_device_send_result_t * W :=
  message_send get_device_info_request_desc 25109.
Definition fci_device_get_device_info_response_send : wstruct -> bool -> Z -> W -> fci_device_send_result_t * W :=
  message_send get_device_info_response_desc 25110.
Definition fci_device_set_device_info_request_send : wstruct -> bool -> Z -> W -> fci_device_send_result_t * W :=
  message_send set_device_info_request_desc 25111.
Definition fci_device_set_device_info_response_send : wstruct -> bool -> Z -> W -> fci_device_send_result_t * W :=
  message_send set_device_info_response_desc 25112.
Definition fci_device_set_arm_control_mode_request_send : wstruct -> bool -> Z -> W -> fci_device_send_result_t * W :=
  message_send set_arm_control_mode_request_desc 25113.
Definition fci_device_set_arm_control_mode_response_send : wstruct -> bool -> Z -> W -> fci_device_send_result_t * W :=
  message_send set_arm_control_mode_response_desc 25114.
Definition fci_device_set_gripper_control_mode_request_send : wstruct -> bool -> Z -> W -> fci_device_send_result_t * W :=
  message_send set_gripper_control_mode_request_desc 25115.
Definition fci_device_set_gripper_control_mode_response_send : wstruct -> bool -> Z -> W -> fci_device_send_result_t * W :=
  message_send set_gripper_control_mode_response_desc 25116.
Definition fci_device_motor_register_read_request_send : wstruct -> bool -> Z -> W -> fci_device_send_result_t * W :=
  message_send motor_register_read_request_desc 25117.
Definition fci_device_motor_register_read_response_send : wstruct -> bool -> Z -> W -> fci_device_send_result_t * W :=
  message_send motor_register_read_response_desc 25118.
Definition fci_device_motor_register_write_request_send : wstruct -> bool -> Z -> W -> fci_device_send_result_t * W :=
  message_send motor_register_write_request_desc 25119.
Definition fci_device_motor_register_write_response_send : wstruct -> bool -> Z -> W -> fci_device_send_result_t * W :=
  message_send motor_register_write_response_desc 25120.
Definition fci_device_motor_store_parameters_request_send : wstruct -> bool -> Z -> W -> fci_device_send_result_t * W :=
  message_send motor_store_parameters_request_desc 25121.
Definition fci_device_motor_store_parameters_response_send : wstruct -> bool -> Z -> W -> fci_device_send_result_t * W :=
  message_send motor_store_parameters_response_desc 25122.
Definition fci_device_motor_set_zero_request_send : wstruct -> bool -> Z -> W -> fci_device_send_result_t * W :=
  message_send motor_set_zero_request_desc 25123.
Definition fci_device_motor_set_zero_response_send : wstruct -> bool -> Z -> W -> fci_device_send_result_t * W :=
  message_send motor_set_zero_response_desc 25124.
Definition fci_device_set_arm_mode_request_send : wstruct -> bool -> Z -> W -> fci_device_send_result_t * W :=
  message_send set_arm_mode_request_desc 25125.
Definition fci_device_set_arm_mode_response_send : wstruct -> bool -> Z -> W -> fci_device_send_result_t * W :=
  message_send set_arm_mode_response_desc 25126.
Definition fci_device_get_device_settings_request_send : wstruct -> bool -> Z -> W -> fci_device_send_result_t * W :=
  message_send get_device_settings_request_desc 25128.
Definition fci_device_get_device_settings_response_send : wstruct -> bool -> Z -> W -> fci_device_send_result_t * W :=
  message_send get_device_settings_response_desc 25129.
Definition fci_device_set_device_settings_request_send : wstruct -> bool -> Z -> W -> fci_device_send_result_t * W :=
  message_send set_device_settings_request_desc 25130.
Definition fci_device_set_device_settings_response_send : wstruct -> bool -> Z -> W -> fci_device_send_result_t * W :=
  message_send set_device_settings_response_desc 25131.
Definition fci_device_joint_mit_command_send : wstruct -> bool -> Z -> W -> fci_device_send_result_t * W :=
  message_send joint_mit_command_desc 25345.
Definition fci_device_emergency_stop_request_send : wstruct -> bool -> Z -> W -> fci_device_send_result_t * W :=
  message_send emergency_stop_request_desc 25347.
Definition fci_device_emergency_stop_response_send : wstruct -> bool -> Z -> W -> fci_device_send_result_t * W :=
  message_send emergency_stop_response_desc 25348.
Definition fci_device_gripper_mit_command_send : wstruct -> bool -> Z -> W -> fci_device_send_result_t * W :=
  message_send gripper_mit_command_desc 25349.
Definition fci_device_joint_position_velocity_command_send : wstruct -> bool -> Z -> W -> fci_device_send_result_t * W :=
  message_send joint_position_velocity_command_desc 25350.
Definition fci_device_joint_velocity_command_send : wstruct -> bool -> Z -> W -> fci_device_send_result_t * W :=
  message_send joint_velocity_command_desc 25351.
Definition fci_device_joint_pvt_command_send : wstruct -> bool -> Z -> W -> fci_device_send_result_t * W :=
  message_send joint_pvt_command_desc 25352.
Definition fci_device_cartesian_pose_command_send : wstruct -> bool -> Z -> W -> fci_device_send_result_t * W :=
  message_send cartesian_pose_command_desc 25353.
Definition fci_device_cartesian_velocity_command_send : wstruct -> bool -> Z -> W -> fci_device_send_result_t * W :=
  message_send cartesian_velocity_command_desc 25354.
Definition fci_device_gripper_position_velocity_command_send : wstruct -> bool -> Z -> W -> fci_device_send_result_t * W :=
  message_send gripper_position_velocity_command_desc 25361.
Definition fci_device_gripper_velocity_command_send : wstruct -> bool -> Z -> W -> fci_device_send_result_t * W :=
  message_send gripper_velocity_command_desc 25362.
Definition fci_device_gripper_pvt_command_send : wstruct -> bool -> Z -> W -> fci_device_send_result_t * W :=
  message_send gripper_pvt_command_desc 25363.
Definition fci_device_image_version_send : wstruct -> bool -> Z -> W -> fci_device_send_result_t * W :=
  message_send image_version_desc 28689.
Definition fci_device_boot_status_info_send : wstruct -> bool -> Z -> W -> fci_device_send_result_t * W :=
  message_send boot_status_info_desc 28690.
Definition fci_device_bulk_begin_send : wstruct -> bool -> Z -> W -> fci_device_send_result_t * W :=
  message_send bulk_begin_desc 28704.
Definition fci_device_bulk_chunk_send : wstruct -> bool -> Z -> W -> fci_device_send_result_t * W :=
  message_send bulk_chunk_desc 28705.
Definition fci_device_bulk_end_send : wstruct -> bool -> Z -> W -> fci_device_send_result_t * W :=
  message_send bulk_end_desc 28706.
Definition fci_device_bulk_abort_send : wstruct -> bool -> Z -> W -> fci_device_send_result_t * W :=
  message_send bulk_abort_desc 28707.
Definition fci_device_bulk_status_send : wstruct -> bool -> Z -> W -> fci_device_send_result_t * W :=
  message_send bulk_status_desc 28708.
Definition fci_device_get_boot_status_request_send : wstruct -> bool -> Z -> W -> fci_device_send_result_t * W :=
  message_send get_boot_status_request_desc 28928.
Definition fci_device_get_boot_status_response_send : wstruct -> bool -> Z -> W -> fci_device_send_result_t * W :=
  message_send get_boot_status_response_desc 28929.
Definition fci_device_start_upgrade_request_send : wstruct -> bool -> Z -> W -> fci_device_send_result_t * W :=
  message_send start_upgrade_request_desc 28930.
Definition fci_device_start_upgrade_response_send : wstruct -> bool -> Z -> W -> fci_device_send_result_t * W :=
  message_send start_upgrade_response_desc 28931.
Definition fci_device_reboot_request_send : wstruct -> bool -> Z -> W -> fci_device_send_result_t * W :=
  message_send reboot_request_desc 28932.
Definition fci_device_reboot_response_send : wstruct -> bool -> Z -> W -> fci_device_send_result_t * W :=
  message_send reboot_response_desc 28933.

(** [fci_device_endpoint_send_*]: at time 0 when delivery is unreliable, else at
    the endpoint's. *)
Definition endpoint_send_unreliable (send : wstruct -> bool -> Z -> W -> fci_device_send_result_t * W)
    (message : wstruct) (w : W) : fci_device_send_result_t * W := send message false 0 w.
Definition endpoint_send_reliable (send : wstruct -> bool -> Z -> W -> fci_device_send_result_t * W)
    (message : wstruct) (w : W) : fci_device_send_result_t * W := send message true (wl_endpoint_now w) w.

Definition fci_device_endpoint_send_arm_status := endpoint_send_unreliable fci_device_arm_status_send.
Definition fci_device_endpoint_send_motor_feedback := endpoint_send_unreliable fci_device_motor_feedback_send.
Definition fci_device_endpoint_send_arm_diagnostics := endpoint_send_unreliable fci_device_arm_diagnostics_send.
Definition fci_device_endpoint_send_joint_mit_command := endpoint_send_unreliable fci_device_joint_mit_command_send.
Definition fci_device_endpoint_send_gripper_mit_command := endpoint_send_unreliable fci_device_gripper_mit_command_send.
Definition fci_device_endpoint_send_joint_position_velocity_command := endpoint_send_unreliable fci_device_joint_position_velocity_command_send.
Definition fci_device_endpoint_send_joint_velocity_command := endpoint_send_unreliable fci_device_joint_velocity_command_send.
Definition fci_device_endpoint_send_joint_pvt_command := endpoint_send_unreliable fci_device_joint_pvt_command_send.
Definition fci_device_endpoint_send_cartesian_pose_command := endpoint_send_unreliable fci_device_cartesian_pose_command_send.
Definition fci_device_endpoint_send_cartesian_velocity_command := endpoint_send_unreliable fci_device_cartesian_velocity_command_send.
Definition fci_device_endpoint_send_gripper_position_velocity_command := endpoint_send_unreliable fci_device_gripper_position_velocity_command_send.
Definition fci_device_endpoint_send_gripper_velocity_command := endpoint_send_unreliable fci_device_gripper_velocity_command_send.
Definition fci_device_endpoint_send_gripper_pvt_command := endpoint_send_unreliable fci_device_gripper_pvt_command_send.
Definition fci_device_endpoint_send_bulk_begin := endpoint_send_reliable fci_device_bulk_begin_send.
Definition fci_device_endpoint_send_bulk_chunk := endpoint_send_unreliable fci_device_bulk_chunk_send.
Definition fci_device_endpoint_send_bulk_end := endpoint_send_reliable fci_device_bulk_end_send.
Definition fci_device_endpoint_send_bulk_abort := endpoint_send_reliable fci_device_bulk_abort_send.
End send.

(** ** What becomes of the events *)

(** The counter of a domain; an invalid argument has none. *)
Definition counter_of (domain : fci_device_dispatch_domain) : option counter :=
  match domain with
  | FCI_DEVICE_DISPATCH_OK => Some delivered
  | FCI_DEVICE_DISPATCH_NON_RX => Some non_rx
  | FCI_DEVICE_DISPATCH_UNKNOWN_MESSAGE => Some unknown_message
  | FCI_DEVICE_DISPATCH_MISSING_ROUTE => Some missing_route
  | FCI_DEVICE_DISPATCH_MISSING_SCRATCH => Some missing_scratch
  | FCI_DEVICE_DISPATCH_CODEC_ERROR => Some codec_failure
  | FCI_DEVICE_DISPATCH_HANDLER_ERROR => Some handler_failure
  | FCI_DEVICE_DISPATCH_INVALID_ARGUMENT => None
  end.

(** A loop that dispatches the events as they come. *)
Fixpoint dispatch_all (es : list wl_event_t) (router : option fci_device_router_t)
    : rop (list dispatch_result * option fci_device_router_t) :=
  match es with
  | [] => mret ([], router)
  | e :: es =>
      '(result, router) ← fci_device_dispatch_event true (Some e) router;
      '(results, router) ← dispatch_all es router;
      mret (result :: results, router)
  end.

Definition counted (k : counter) (r : dispatch_result) : bool :=
  bool_decide (counter_of (dr_domain r) = Some k).

Definition number (k : counter) (results : list dispatch_result) : Z :=
  Z.of_nat (length (List.filter (counted k) results)).

(** What a case of the switch does to the router and the outside. *)
Definition case_spec (d : wlc_desc) (id : Z) (e : wl_event_t) (r : fci_device_router_t)
    (l : list (event route_call)) (result : dispatch_result) (r' : fci_device_router_t) : Prop :=
  (exists k, counter_of (dr_domain result) = Some k /\
    ru_counters r' = ru_counters (fci_device_count k r)) /\
  (forall i, ro_handler (ru_routes r' i) = ro_handler (ru_routes r i) /\
    ro_user_data (ru_routes r' i) = ro_user_data (ru_routes r i) /\
    (i <> id -> ro_scratch (ru_routes r' i) = ro_scratch (ru_routes r i))) /\
  ((l = [] /\ dr_domain result <> FCI_DEVICE_DISPATCH_OK) \/
   exists handler scratch m answer,
    ro_handler (ru_routes r id) = Some handler /\ ro_scratch (ru_routes r id) = Some scratch /\
    wlc_decode d (ev_payload e) scratch = (WL_CODEC_OK, m) /\
    l = [Event (Route_handler handler (ro_user_data (ru_routes r id)) m
                  (bool_decide (ev_type e = WL_EVT_RELIABLE_RX))) answer] /\
    dr_handler_result result = answer /\
    (dr_domain result = FCI_DEVICE_DISPATCH_OK <-> answer = 0)).

Lemma scratch_kept id m r i :
  ro_handler (ru_routes (set_scratch id m r) i) = ro_handler (ru_routes r i) /\
  ro_user_data (ru_routes (set_scratch id m r) i) = ro_user_data (ru_routes r i) /\
  (i <> id -> ro_scratch (ru_routes (set_scratch id m r) i) = ro_scratch (ru_routes r i)).
Proof. cbn. by destruct (Z.eqb_spec i id). Qed.

Lemma route_spec d id e r l result router :
  runs (dispatch_route d id e (Some r)) l (result, router) ->
  exists r', router = Some r' /\ case_spec d id e r l result r'.
Proof.
  unfold dispatch_route. destruct (ro_handler (ru_routes r id)) as [handler|] eqn:Hh;
    [|intros [-> [= <- <-]]; eexists; split; [done|]; split; [by eexists|]; split; [done|]; by left].
  destruct (ro_scratch (ru_routes r id)) as [scratch|] eqn:Hs;
    [|intros [-> [= <- <-]]; eexists; split; [done|]; split; [by eexists|]; split; [done|]; by left].
  destruct (wlc_decode d (ev_payload e) scratch) as [codec m] eqn:Hd.
  destruct (bool_decide_reflect (codec = WL_CODEC_OK)) as [->|]; cbn [negb].
  - intros Hr. step_call Hr ans. apply runs_ret in Hr as [-> Hr].
    exists (fci_device_count (if ans =? 0 then delivered else handler_failure) (set_scratch id m r)).
    assert (ro_user_data (ru_routes (set_scratch id m r) id) = ro_user_data (ru_routes r id)) as ->
      by apply scratch_kept.
    destruct (Z.eqb_spec ans 0); injection Hr as <- <-; (split; [done|]); (split; [by eexists|]);
      (split; [intros; apply scratch_kept|]); right; exists handler, scratch, m, ans; done.
  - intros [-> [= <- <-]]. eexists; split; [done|]. split; [by eexists|].
    split; [intros; apply scratch_kept|]. by left.
Qed.

Lemma switch_case id h :
  List.find (fun '(i, _) => id =? i) route_cases = Some h ->
  exists d, h = (id, dispatch_route d id).
Proof.
  intros Hf. pose proof (find_some _ _ Hf) as [Hin Hid]. destruct h as [i h]. apply Z.eqb_eq in Hid as <-.
  assert (Forall (fun '(i, h) => exists d, h = dispatch_route d i) route_cases) as Hall
    by (repeat constructor; eexists; reflexivity).
  rewrite List.Forall_forall in Hall. destruct (Hall _ Hin) as [d ->]. by exists d.
Qed.

(** The dispatch of an event, to a router. *)
Lemma event_spec e r l result router :
  runs (fci_device_dispatch_event true (Some e) (Some r)) l (result, router) ->
  exists r', router = Some r' /\
  exists k, counter_of (dr_domain result) = Some k /\ ru_counters r' = ru_counters (fci_device_count k r).
Proof.
  unfold fci_device_dispatch_event. destruct (is_rx e); cbn [negb].
  - unfold dispatch_switch. intros (l1 & l2 & [result' router'] & -> & Hc & Hr)%runs_bind.
    apply runs_call in Hr as (? & ? & -> & [-> [= -> ->]]%runs_ret).
    destruct (List.find _ route_cases) as [[i h]|] eqn:Hf.
    + destruct (switch_case _ _ Hf) as [d [= -> ->]].
      destruct (route_spec _ _ _ _ _ _ _ Hc) as (r' & -> & Hk & _). by exists r'.
    + apply runs_ret in Hc as [-> [= <- <-]]. eexists. split; [done|]. by eexists.
  - intros [-> [= <- <-]]. eexists. split; [done|]. by eexists.
Qed.

Lemma count_is k j r : ru_counters (fci_device_count k r) j =
  if decide (j = k) then if ru_counters r j =? UINT32_MAX then ru_counters r j else ru_counters r j + 1
  else ru_counters r j.
Proof. done. Qed.

(** The counters of a router account for the events, each exactly once.
    After a run of events, each counter is higher by the number of results of its
    kind, or has stopped at the largest value; and every event has a result, of a
    kind that is counted. *)
Theorem counters_exact es : forall r l results router,
  (forall k, ru_counters r k <= UINT32_MAX) ->
  runs (dispatch_all es (Some r)) l (results, router) ->
  length results = length es /\
  exists r', router = Some r' /\
    forall k, ru_counters r' k = Z.min UINT32_MAX (ru_counters r k + number k results).
Proof.
  induction es as [|e es IH]; intros r l results router Hr.
  - intros [-> [= <- <-]]. split; [done|]. exists r. split; [done|]. intros k. specialize (Hr k).
    change (number k []) with 0. rewrite Z.add_0_r. lia.
  - cbn [dispatch_all]. intros (l1 & l2 & [result router1] & -> & Hc & Hrest)%runs_bind.
    destruct (event_spec _ _ _ _ _ Hc) as (r1 & -> & k & Hk & Hcount).
    apply runs_bind in Hrest as (l3 & l4 & [results' router2] & -> & Hrest & [-> [= <- <-]]%runs_ret).
    apply IH in Hrest as (Hlen & r' & -> & Hall).
    + split; [cbn; lia|]. exists r'. split; [done|]. intros j. rewrite Hall, Hcount, count_is.
      unfold number. cbn [List.filter]. unfold counted at 2. rewrite Hk.
      specialize (Hr j). destruct (decide (j = k)) as [->|Hne].
      * rewrite bool_decide_true by done. cbn [length]. rewrite Nat2Z.inj_succ. destruct (Z.eqb_spec (ru_counters r k) UINT32_MAX); unfold UINT32_MAX in *; lia.
      * rewrite bool_decide_false by congruence. done.
    + intros j. rewrite Hcount, count_is. specialize (Hr j).
      repeat case_match; [done| |done]. apply Z.eqb_neq in H0. unfold UINT32_MAX in *; lia.
Qed.

(** A message reaches the handler of its route, whole, and nothing else
    does.  Of an event that is received, the router's handlers see at most the one
    of the event's message id, at most once, with the payload as its table decodes
    it into the route's own scratch; no other route's scratch changes; the result
    says the message was delivered exactly when that handler accepted it; and the
    event is released at the end, once. *)
Theorem router_delivers e r l result router :
  is_rx e = true ->
  runs (fci_device_dispatch_event true (Some e) (Some r)) l (result, router) ->
  exists calls r', router = Some r' /\ l = calls ++ [Event (Release e) tt] /\
    (forall i, i <> ev_message_id e -> ro_scratch (ru_routes r' i) = ro_scratch (ru_routes r i)) /\
    ((calls = [] /\ dr_domain result <> FCI_DEVICE_DISPATCH_OK) \/
     exists d handler scratch m answer,
      List.find (fun '(i, _) => ev_message_id e =? i) route_cases =
        Some (ev_message_id e, dispatch_route d (ev_message_id e)) /\
      ro_handler (ru_routes r (ev_message_id e)) = Some handler /\
      ro_scratch (ru_routes r (ev_message_id e)) = Some scratch /\
      wlc_decode d (ev_payload e) scratch = (WL_CODEC_OK, m) /\
      calls = [Event (Route_handler handler (ro_user_data (ru_routes r (ev_message_id e))) m
                        (bool_decide (ev_type e = WL_EVT_RELIABLE_RX))) answer] /\
      dr_handler_result result = answer /\
      (dr_domain result = FCI_DEVICE_DISPATCH_OK <-> answer = 0)).
Proof.
  intros Hrx. unfold fci_device_dispatch_event. rewrite Hrx. cbn [negb]. unfold dispatch_switch.
  intros (l1 & l2 & [result' router'] & -> & Hc & Hr)%runs_bind.
  apply runs_call in Hr as ([] & ? & -> & [-> [= -> ->]]%runs_ret).
  exists l1. destruct (List.find _ route_cases) as [[i h]|] eqn:Hf.
  - destruct (switch_case _ _ Hf) as [d [= -> ->]].
    destruct (route_spec _ _ _ _ _ _ _ Hc) as (r' & -> & _ & Hkept & Hcalls). exists r'.
    split; [done|]. split; [done|]. split; [intros i Hi; by apply Hkept|].
    destruct Hcalls as [|Hcalls]; [by left|]. right. exists d.
    destruct Hcalls as (handler & scratch & m & ans & Hspec). by exists handler, scratch, m, ans.
  - apply runs_ret in Hc as [-> [= <- <-]]. eexists. split; [done|]. split; [done|]. split; [done|]. by left.
Qed.

(** ** An example *)

(** A router with a route for one message, and its application, which accepts. *)
Definition sample_router : fci_device_router_t :=
  {| ru_routes := fun i =>
       if i =? 24839 then {| ro_scratch := Some (wlc_clear set_zero_request_desc []);
                             ro_handler := Some 1; ro_user_data := 2 |}
       else {| ro_scratch := None; ro_handler := None; ro_user_data := 0 |};
     ru_counters := fun k => if decide (k = delivered) then UINT32_MAX - 1 else 0 |}.
Definition sample_event (type : wl_event_type) (id : Z) : wl_event_t :=
  {| ev_type := type; ev_message_id := id; ev_payload := [16; 3]; ev_handle := 0 |}.
Definition sample_events : list wl_event_t :=
  [ sample_event WL_EVT_RELIABLE_RX 24839; sample_event WL_EVT_TX_SUCCESS 0;
    sample_event WL_EVT_RELIABLE_RX 24839; sample_event WL_EVT_UNRELIABLE_RX 7 ].

Definition accepts {R} (c : route_call R) (s : unit) : R * unit :=
  match c in route_call R return R * unit with
  | Route_handler _ _ _ _ => (0, s)
  | Release _ => (tt, s)
  end.
Definition sample_run := interp (@accepts) (dispatch_all sample_events (Some sample_router)) tt.
Definition sample_delivery :=
  interp (@accepts) (fci_device_dispatch_event true (Some (sample_event WL_EVT_RELIABLE_RX 24839))
                       (Some sample_router)) tt.

(** The counter of deliveries stops at the largest value. *)
Lemma counters_exact_witness :
  map dr_domain (fst (snd sample_run)) =
    [ FCI_DEVICE_DISPATCH_OK; FCI_DEVICE_DISPATCH_NON_RX; FCI_DEVICE_DISPATCH_OK;
      FCI_DEVICE_DISPATCH_UNKNOWN_MESSAGE ] /\
  length (fst (snd sample_run)) = 4%nat /\
  exists r', snd (snd sample_run) = Some r' /\
    forall k, ru_counters r' k =
      Z.min UINT32_MAX (ru_counters sample_router k + number k (fst (snd sample_run))).
Proof.
  split; [vm_compute; reflexivity|].
  apply (counters_exact sample_events sample_router (fst sample_run)).
  - intros []; vm_compute; discriminate.
  - unfold sample_run. rewrite <- surjective_pairing. apply interp_runs.
Defined.

Lemma router_delivers_witness :
  fst sample_delivery =
    [ Event (Route_handler 1 2 [SOpt true (VInt 3)] true) 0;
      Event (Release (sample_event WL_EVT_RELIABLE_RX 24839)) tt ] /\
  exists calls r', snd (snd sample_delivery) = Some r' /\
    fst sample_delivery = calls ++ [Event (Release (sample_event WL_EVT_RELIABLE_RX 24839)) tt].
Proof.
  split; [vm_compute; reflexivity|].
  destruct (router_delivers (sample_event WL_EVT_RELIABLE_RX 24839) sample_router
    (fst sample_delivery) (fst (snd sample_delivery)) (snd (snd sample_delivery))) as (calls & r' & H1 & H2 & _).
  - reflexivity.
  - unfold sample_delivery. rewrite <- surjective_pairing. apply interp_runs.
  - exists calls, r'. split; [exact H1|exact H2].
Defined.
