(* ===== verification/Discovery.v ===== *)
(** * Device discovery

    [src/DeviceDiscovery.cpp] and [include/florid/DeviceDiscovery.hpp]: probing a
    USB device, listing devices, selecting one and waiting for one.  The USB
    enumeration, the probe's endpoint and the clock are calls of the program
    ([Prog.v]); the endpoint that answers them is [EndpointOps.v]. *)

From Stdlib Require Import String Sorted.
From S2P Require Import Prelude UsbUri DeviceTypes Endpoint EndpointOps Prog.

(** ** Data *)

Module Access.
Inductive DeviceAccessStatus :=
| kNotProbed | kReady | kPermissionDenied | kBusy | kDisconnected | kUnavailable.
End Access.
Module Compatibility.
Inductive DeviceCompatibility :=
| kUnknown | kCompatible | kProtocolMismatch | kIdentityMismatch | kProbeFailed.
End Compatibility.
Module DiscoveryError.
Inductive DeviceDiscoveryError :=
| kNone | kEnumerationFailed | kInvalidSelector | kDeviceNotFound | kAmbiguous | kTimeout.
End DiscoveryError.
Abbreviation DeviceAccessStatus := Access.DeviceAccessStatus.
Abbreviation DeviceCompatibility := Compatibility.DeviceCompatibility.
Abbreviation DeviceDiscoveryError := DiscoveryError.DeviceDiscoveryError.
#[global] Instance DeviceAccessStatus_eq_dec : EqDecision DeviceAccessStatus.
Proof. solve_decision. Defined.
#[global] Instance DeviceCompatibility_eq_dec : EqDecision DeviceCompatibility.
Proof. solve_decision. Defined.
#[global] Instance DeviceDiscoveryError_eq_dec : EqDecision DeviceDiscoveryError.
Proof. solve_decision. Defined.
#[global] Instance FirmwareType_eq_dec : EqDecision FirmwareType.
Proof. solve_decision. Defined.

(** [DeviceInfo] has the members of the endpoint's [FixedDeviceInfo]. *)
Abbreviation DeviceInfo := FixedDeviceInfo.

Record DeviceDescriptor := {
  dd_usb : UsbBulkDeviceInfo;
  dd_device_info : option DeviceInfo;
  dd_access : DeviceAccessStatus;
  dd_compatibility : DeviceCompatibility;
  dd_system_error : Z;  (* 0 is no error *)
  dd_error_message : text;
  dd_display_name : text
}.

Record DeviceSelector := {
  ds_serial_number : option text;
  ds_custom_name : option text;
  ds_firmware_type : option FirmwareType
}.
Definition bySerial (serial : text) : DeviceSelector :=
  {| ds_serial_number := Some serial; ds_custom_name := None; ds_firmware_type := None |}.
Definition byCustomName (name : text) : DeviceSelector :=
  {| ds_serial_number := None; ds_custom_name := Some name; ds_firmware_type := None |}.

Record DeviceDiscoveryOptions := { do_probe : bool; do_probe_timeout : Z }.

Record DeviceDiscoveryResult := {
  dr_devices : list DeviceDescriptor;
  dr_error : DeviceDiscoveryError;
  dr_system_error : Z
}.

Record DeviceSelectionResult := {
  sl_device : option DeviceDescriptor;
  sl_candidates : list DeviceDescriptor;
  sl_error : DeviceDiscoveryError
}.
Definition selection_error (e : DeviceDiscoveryError) : DeviceSelectionResult :=
  {| sl_device := None; sl_candidates := []; sl_error := e |}.

(** [operator bool] of a selection. *)
Definition selected (r : DeviceSelectionResult) : bool :=
  match sl_device r with Some _ => bool_decide (sl_error r = DiscoveryError.kNone) | None => false end.

Definition serialNumber (d : DeviceDescriptor) : text :=
  match dd_device_info d with
  | Some i => match fi_serial_number i with [] => m_serial_number (dd_usb d) | s => s end
  | None => m_serial_number (dd_usb d)
  end.

Definition isProtocolVersionCompatible (v : Version) : bool :=
  if m_major kSupportedProtocolVersion =? 0
  then (m_major v =? m_major kSupportedProtocolVersion) &&
       (m_minor v =? m_minor kSupportedProtocolVersion)
  else m_major v =? m_major kSupportedProtocolVersion.

(** ** Selection *)

Definition s_displayName (usb : UsbBulkDeviceInfo) (info : option DeviceInfo) : text :=
  match info with
  | Some i =>
      match fi_custom_name i with
      | [] => m_display_name usb
      | name =>
          match m_display_name usb with
          | [] => name
          | shown =>
              if text_eqb name shown then name else name ++ str " (" ++ shown ++ str ")"
          end
      end
  | None => m_display_name usb
  end.

Definition s_matches (d : DeviceDescriptor) (sel : DeviceSelector) : bool :=
  (bool_decide (dd_compatibility d = Compatibility.kUnknown) ||
   bool_decide (dd_compatibility d = Compatibility.kCompatible)) &&
  match ds_serial_number sel with
  | Some s => text_eqb (serialNumber d) s
  | None => true
  end &&
  match ds_custom_name sel with
  | Some n => match dd_device_info d with Some i => text_eqb (fi_custom_name i) n | None => false end
  | None => true
  end &&
  match ds_firmware_type sel with
  | Some t =>
      match dd_device_info d with Some i => bool_decide (fi_firmware_type i = t) | None => false end
  | None => true
  end.

Definition is_empty (t : option text) : bool := match t with Some [] => true | _ => false end.

(** The loop collects the matches in order. *)
Fixpoint collect (devices : list DeviceDescriptor) (sel : DeviceSelector)
    (candidates : list DeviceDescriptor) : list DeviceDescriptor :=
  match devices with
  | [] => candidates
  | d :: devices' => collect devices' sel (if s_matches d sel then candidates ++ [d] else candidates)
  end.

Definition selectDevice (devices : list DeviceDescriptor) (sel : DeviceSelector)
    : DeviceSelectionResult :=
  if is_empty (ds_serial_number sel) || is_empty (ds_custom_name sel)
  then selection_error DiscoveryError.kInvalidSelector
  else
    match collect devices sel [] with
    | [] => selection_error DiscoveryError.kDeviceNotFound
    | [d] => {| sl_device := Some d; sl_candidates := [d]; sl_error := DiscoveryError.kNone |}
    | candidates =>
        {| sl_device := None; sl_candidates := candidates; sl_error := DiscoveryError.kAmbiguous |}
    end.

Definition deviceDiscoveryErrorMessage (e : DeviceDiscoveryError) : string :=
  match e with
  | DiscoveryError.kNone => "no error"
  | DiscoveryError.kEnumerationFailed => "USB enumeration failed"
  | DiscoveryError.kInvalidSelector => "invalid device selector"
  | DiscoveryError.kDeviceNotFound => "device not found"
  | DiscoveryError.kAmbiguous => "selector matches multiple devices"
  | DiscoveryError.kTimeout => "timed out waiting for device"
  end.

(** ** Calls *)

Inductive discovery_call : Type -> Type :=
| EnumerateUsb : discovery_call (res Z (list UsbBulkDeviceInfo))
| Initialize : discovery_call FciEndpointStatus
| AttachDirectTransport (device : UsbBulkDeviceInfo) : discovery_call FciEndpointStatus
| LastError : discovery_call Z
| Start : discovery_call FciEndpointStatus
| GetDeviceInfo (timeout_ms : Z) : discovery_call FciSubmitResult
| WaitOperation (id timeout : Z) : discovery_call FciEndpointStatus
| TakeDeviceInfo (id : Z) : discovery_call (FciEndpointStatus * DeviceInfo)
| SteadyNow : discovery_call Z  (* nanoseconds *)
| SleepFor (ms : Z) : discovery_call unit.

(** The error codes of the USB library, and [std::error_code::message]. *)
Record usb_errors := {
  PermissionDenied : Z;
  InterfaceBusy : Z;
  DeviceDisconnected : Z;
  UsbDeviceNotFound : Z;
  error_message : Z -> text
}.

Section discovery.
Variable codes : usb_errors.

Definition s_accessFromError (e : Z) : DeviceAccessStatus :=
  if e =? PermissionDenied codes then Access.kPermissionDenied
  else if e =? InterfaceBusy codes then Access.kBusy
  else if (e =? DeviceDisconnected codes) || (e =? UsbDeviceNotFound codes) then Access.kDisconnected
  else Access.kUnavailable.

Definition s_unprobed (usb : UsbBulkDeviceInfo) : DeviceDescriptor := {|
  dd_usb := usb; dd_device_info := None; dd_access := Access.kNotProbed;
  dd_compatibility := Compatibility.kUnknown; dd_system_error := 0; dd_error_message := [];
  dd_display_name := m_display_name usb |}.

Definition s_failProbe (d : DeviceDescriptor) (access : DeviceAccessStatus) (message : text) (error : Z)
    : DeviceDescriptor := {|
  dd_usb := dd_usb d; dd_device_info := dd_device_info d; dd_access := access;
  dd_compatibility := Compatibility.kProbeFailed; dd_system_error := error;
  dd_error_message := message; dd_display_name := dd_display_name d |}.

(** What a successful probe found. *)
Definition probed (device : UsbBulkDeviceInfo) (info : DeviceInfo) : DeviceDescriptor :=
  let '(compatibility, message) :=
    match m_serial_number device, fi_serial_number info with
    | _ :: _, _ :: _ =>
        if negb (text_eqb (m_serial_number device) (fi_serial_number info))
        then (Compatibility.kIdentityMismatch, str "USB serial and firmware serial do not match")
        else if negb (isProtocolVersionCompatible (fi_protocol_version info))
        then (Compatibility.kProtocolMismatch, str "unsupported FCI protocol version")
        else (Compatibility.kCompatible, [])
    | _, _ =>
        if negb (isProtocolVersionCompatible (fi_protocol_version info))
        then (Compatibility.kProtocolMismatch, str "unsupported FCI protocol version")
        else (Compatibility.kCompatible, [])
    end in
  {| dd_usb := device; dd_device_info := Some info; dd_access := Access.kReady;
     dd_compatibility := compatibility; dd_system_error := 0; dd_error_message := message;
     dd_display_name := s_displayName device (Some info) |}.

Definition probeDevice (device : UsbBulkDeviceInfo) (timeout : Z) : prog discovery_call DeviceDescriptor :=
  let r := s_unprobed device in
  let fail access message := mret (s_failProbe r access message 0) in
  if timeout <=? 0 then fail Access.kUnavailable (str "probe timeout must be positive")
  else
    st ← call Initialize;
    if negb (bool_decide (st = kOk))
    then fail Access.kUnavailable (str "Wirelink probe initialization failed")
    else
      st ← call (AttachDirectTransport device);
      if negb (bool_decide (st = kOk)) then
        e ← call LastError;
        mret (s_failProbe r (s_accessFromError e)
          (if e =? 0 then str "USB interface open failed" else error_message codes e) e)
      else
        st ← call Start;
        if negb (bool_decide (st = kOk))
        then fail Access.kUnavailable (str "Wirelink probe start failed")
        else
          submit ← call (GetDeviceInfo (u32 (Z.max 1 timeout)));
          if negb (bool_decide (fst submit = kOk))
          then fail Access.kReady (str "GetDeviceInfo submission failed")
          else
            wait ← call (WaitOperation (snd submit) timeout);
            if negb (bool_decide (wait = kOk))
            then fail Access.kReady
                   (if bool_decide (wait = kBusy) then str "GetDeviceInfo probe timed out"
                    else str "GetDeviceInfo probe failed")
            else
              taken ← call (TakeDeviceInfo (snd submit));
              if negb (bool_decide (fst taken = kOk))
              then fail Access.kReady (str "GetDeviceInfo response was invalid")
              else mret (probed device (snd taken)).

Fixpoint probe_all (o : DeviceDiscoveryOptions) (devices : list UsbBulkDeviceInfo)
    : prog discovery_call (list DeviceDescriptor) :=
  match devices with
  | [] => mret []
  | d :: devices' =>
      x ← (if do_probe o then probeDevice d (do_probe_timeout o) else mret (s_unprobed d));
      xs ← probe_all o devices'; mret (x :: xs)
  end.

Definition discoverDevices (o : DeviceDiscoveryOptions) : prog discovery_call DeviceDiscoveryResult :=
  listed ← call EnumerateUsb;
  let '(devices, e) := discoverUsbBulkDevices kDefaultUsbVendorId kDefaultUsbProductId listed in
  if negb (e =? 0)
  then mret {| dr_devices := []; dr_error := DiscoveryError.kEnumerationFailed; dr_system_error := e |}
  else
    found ← probe_all o devices;
    mret {| dr_devices := found; dr_error := DiscoveryError.kNone; dr_system_error := 0 |}.

(** [std::chrono::duration_cast<milliseconds>] of nanoseconds. *)
Definition to_ms (ns : Z) : Z := Z.quot ns 1000000.

Definition is_some {A} (o : option A) : bool := match o with Some _ => true | None => false end.

Definition wait_options (sel : DeviceSelector) : DeviceDiscoveryOptions := {|
  do_probe := is_some (ds_custom_name sel) || is_some (ds_firmware_type sel);
  do_probe_timeout := 1500 |}.

(** The loop of [waitForDevice]; [None] when the fuel is used up. *)
Fixpoint wait_loop (fuel : nat) (sel : DeviceSelector) (deadline poll : Z)
    : prog discovery_call (option DeviceSelectionResult) :=
  match fuel with
  | O => mret None
  | S fuel' =>
      found ← discoverDevices (wait_options sel);
      if negb (bool_decide (dr_error found = DiscoveryError.kNone))
      then mret (Some (selection_error (dr_error found)))
      else
        let selection := selectDevice (dr_devices found) sel in
        if selected selection || bool_decide (sl_error selection = DiscoveryError.kAmbiguous)
        then mret (Some selection)
        else
          now ← call SteadyNow;
          if now >=? deadline then mret (Some (selection_error DiscoveryError.kTimeout))
          else
            _ ← call (SleepFor (Z.min poll (to_ms (deadline - now))));
            wait_loop fuel' sel deadline poll
  end.

Definition waitForDevice (fuel : nat) (sel : DeviceSelector) (timeout poll : Z)
    : prog discovery_call (option DeviceSelectionResult) :=
  if (timeout <? 0) || (poll <=? 0)
  then mret (Some (selection_error DiscoveryError.kInvalidSelector))
  else
    now ← call SteadyNow;
    wait_loop fuel sel (now + timeout * 1000000) poll.
End discovery.

(** ** Selecting *)

(** What a selector asks of a device. *)
Record matches (d : DeviceDescriptor) (sel : DeviceSelector) : Prop := {
  mt_compatible : dd_compatibility d = Compatibility.kUnknown \/
    dd_compatibility d = Compatibility.kCompatible;
  mt_serial : forall s, ds_serial_number sel = Some s -> serialNumber d = s;
  mt_name : forall n, ds_custom_name sel = Some n ->
    exists i, dd_device_info d = Some i /\ fi_custom_name i = n;
  mt_type : forall t, ds_firmware_type sel = Some t ->
    exists i, dd_device_info d = Some i /\ fi_firmware_type i = t
}.

Lemma s_matches_spec d sel : s_matches d sel = true <-> matches d sel.
Proof.
  unfold s_matches, text_eqb. rewrite !andb_true_iff, orb_true_iff, !bool_decide_eq_true. split.
  - intros (((Hc & Hs) & Hn) & Ht). split; [done|..].
    + intros s E. rewrite E in Hs. by apply bool_decide_eq_true in Hs.
    + intros n E. rewrite E in Hn. destruct (dd_device_info d) as [i|]; [|done].
      apply bool_decide_eq_true in Hn. by exists i.
    + intros t E. rewrite E in Ht. destruct (dd_device_info d) as [i|]; [|done].
      apply bool_decide_eq_true in Ht. by exists i.
  - intros [Hc Hs Hn Ht]. split_and!; [done|..].
    + destruct (ds_serial_number sel); [|done]. apply bool_decide_eq_true. auto.
    + destruct (ds_custom_name sel) as [n|]; [|done]. destruct (Hn n eq_refl) as (i & -> & <-).
      by apply bool_decide_eq_true.
    + destruct (ds_firmware_type sel) as [t|]; [|done]. destruct (Ht t eq_refl) as (i & -> & <-).
      by apply bool_decide_eq_true.
Qed.

Lemma collect_filter devices sel cs :
  collect devices sel cs = cs ++ List.filter (fun d => s_matches d sel) devices.
Proof.
  revert cs. induction devices as [|d ds IH]; intros cs; cbn [collect List.filter].
  - by rewrite app_nil_r.
  - rewrite IH. destruct (s_matches d sel); [by rewrite <- app_assoc|done].
Qed.

(** A filter with one element: that element, and no other place satisfies it. *)
Lemma filter_single {A} (P : A -> bool) l x :
  List.filter P l = [x] <->
  exists l1 l2, l = l1 ++ x :: l2 /\ P x = true /\ Forall (fun y => P y = false) (l1 ++ l2).
Proof.
  split.
  - induction l as [|y l IH]; [done|]. cbn. destruct (P y) eqn:Hy.
    + intros [= -> Hl]. exists [], l. split; [done|]. split; [done|].
      clear -Hl. induction l as [|z l IH]; [constructor|]. cbn in Hl. destruct (P z) eqn:Hz; [done|].
      constructor; auto.
    + intros (l1 & l2 & -> & Hx & Hr)%IH. exists (y :: l1), l2. split; [done|]. split; [done|].
      by constructor.
  - intros (l1 & l2 & -> & Hx & Hr). apply Forall_app in Hr as [H1 H2].
    assert (forall l, Forall (fun y => P y = false) l -> List.filter P l = []) as Hf.
    { induction 1 as [|z l Hz _ IH]; [done|]. cbn. by rewrite Hz. }
    rewrite List.filter_app. cbn. rewrite Hx, (Hf l1), (Hf l2) by done. done.
Qed.

Definition valid_selector (sel : DeviceSelector) : Prop :=
  ds_serial_number sel <> Some [] /\ ds_custom_name sel <> Some [].

Lemma valid_selector_spec sel :
  is_empty (ds_serial_number sel) || is_empty (ds_custom_name sel) = false <-> valid_selector sel.
Proof.
  unfold is_empty, valid_selector.
  destruct (ds_serial_number sel) as [[|]|], (ds_custom_name sel) as [[|]|]; cbn;
    split; intros; try done; by intuition.
Qed.

(** A device is selected exactly when it is the only one that matches: its
    compatibility is unknown or confirmed, its serial number (the firmware's,
    or the USB one where that is missing), its name and its firmware type are
    those of the selector.  A selector with an empty serial number or name is
    invalid; without a match the error says so, and with several the candidates
    are all the matches in order and none is chosen. *)
Theorem selectDevice_spec devices sel :
  let r := selectDevice devices sel in
  let found := List.filter (fun d => s_matches d sel) devices in
  (forall d, sl_device r = Some d <->
     valid_selector sel /\ exists l1 l2, devices = l1 ++ d :: l2 /\ matches d sel /\
       Forall (fun d' => ~ matches d' sel) (l1 ++ l2)) /\
  (selected r = true <-> sl_device r <> None) /\
  (sl_error r = DiscoveryError.kInvalidSelector <-> ~ valid_selector sel) /\
  (valid_selector sel -> sl_candidates r = found) /\
  (sl_error r = DiscoveryError.kDeviceNotFound <-> valid_selector sel /\ found = []) /\
  (sl_error r = DiscoveryError.kAmbiguous <-> valid_selector sel /\ (2 <= length found)%nat).
Proof.
  cbv zeta. unfold selectDevice. rewrite collect_filter, app_nil_l. split.
  { intros d. assert (forall d', ~ matches d' sel <-> s_matches d' sel = false) as Hno.
    { intros d'. rewrite <- s_matches_spec. by destruct (s_matches d' sel). }
    setoid_rewrite Hno. setoid_rewrite <- s_matches_spec.
    destruct (_ || _) eqn:Hv.
    - split; [done|]. intros [Hs _]. apply valid_selector_spec in Hs. congruence.
    - apply valid_selector_spec in Hv.
      pose proof (filter_single (fun d' => s_matches d' sel) devices d) as Hf. cbn beta in Hf.
      rewrite <- Hf.
      destruct (List.filter _ devices) as [|x [|y l]]; cbn; split; try done; try by intros [_ [=]].
      + by intros [= ->].
      + by intros [_ [= ->]]. }
  destruct (_ || _) eqn:Hv.
  - assert (~ valid_selector sel) as Hn by (rewrite <- valid_selector_spec, Hv; done).
    cbn. split_and!; try done; split; try done; by intros [? _].
  - apply valid_selector_spec in Hv.
    destruct (List.filter _ devices) as [|x [|y l]]; cbn; split_and!; try done; split; try done;
      try (by intros [_ ?]); try (by intros); try (intros; split; [done|lia]);
      try (intros [_ ?]; lia); by intros [_ [=]].
Qed.

(** ** Probing *)

(** The two cases of a test [st != kOk] in a trace. *)
Ltac on_status H st :=
  destruct (decide (st = kOk)) as [->|?];
  [rewrite bool_decide_true in H by done|rewrite bool_decide_false in H by done];
  cbn [negb] in H.

Lemma probed_spec device info :
  let d := probed device info in
  dd_usb d = device /\ dd_device_info d = Some info /\ dd_access d = Access.kReady /\
  (dd_compatibility d = Compatibility.kCompatible <->
   (m_serial_number device = [] \/ fi_serial_number info = [] \/
    m_serial_number device = fi_serial_number info) /\
   m_major (fi_protocol_version info) = 0 /\ m_minor (fi_protocol_version info) = 0) /\
  dd_compatibility d <> Compatibility.kUnknown /\ dd_compatibility d <> Compatibility.kProbeFailed.
Proof.
  cbv zeta. unfold probed.
  assert (isProtocolVersionCompatible (fi_protocol_version info) = true <->
    m_major (fi_protocol_version info) = 0 /\ m_minor (fi_protocol_version info) = 0) as Hv.
  { unfold isProtocolVersionCompatible. cbn. by rewrite andb_true_iff, !Z.eqb_eq. }
  destruct (isProtocolVersionCompatible (fi_protocol_version info)); cbn [negb];
    destruct (m_serial_number device) as [|a s], (fi_serial_number info) as [|b t];
    cbn; try (split_and!; try done; split; try done; intros; intuition congruence).
  - destruct (text_eqb (a :: s) (b :: t)) eqn:He; unfold text_eqb in He;
      [apply bool_decide_eq_true in He|apply bool_decide_eq_false in He]; cbn;
      split_and!; try done; split; try done; intros; intuition congruence.
  - destruct (text_eqb (a :: s) (b :: t)) eqn:He; cbn;
      split_and!; try done; split; try done; intros; intuition congruence.
Qed.

(** A probe tells the truth about a device.  It reports the device it was
    given; it finds it compatible only when every call of the probe succeeded,
    in order, and the device itself answered with its information, whose
    serial number does not contradict the USB one and whose protocol version
    is supported; without an answer it has no device information, its
    compatibility is [kProbeFailed] and its message is not empty. *)
Theorem probe_truthful codes device timeout l d :
  (forall e, e <> 0 -> error_message codes e <> []) ->
  runs (probeDevice codes device timeout) l d ->
  dd_usb d = device /\
  match dd_device_info d with
  | Some info =>
      0 < timeout /\
      (exists id,
        l = [Event Initialize kOk; Event (AttachDirectTransport device) kOk; Event Start kOk;
             Event (GetDeviceInfo (u32 timeout)) (kOk, id); Event (WaitOperation id timeout) kOk;
             Event (TakeDeviceInfo id) (kOk, info)]) /\
      (dd_compatibility d = Compatibility.kCompatible <->
       (m_serial_number device = [] \/ fi_serial_number info = [] \/
        m_serial_number device = fi_serial_number info) /\
       m_major (fi_protocol_version info) = 0 /\ m_minor (fi_protocol_version info) = 0) /\
      dd_compatibility d <> Compatibility.kUnknown
  | None => dd_compatibility d = Compatibility.kProbeFailed /\ dd_error_message d <> []
  end.
Proof.
  intros Hmsg. unfold probeDevice. destruct (Z.leb_spec timeout 0) as [|Ht]; [by intros [_ <-]|].
  rewrite Z.max_r by lia.
  intros H. step_call H st. on_status H st; [|by destruct H as [_ <-]].
  step_call H st. on_status H st.
  2:{ step_call H e. destruct H as [_ <-]. split; [done|]. cbn. split; [done|].
      destruct (Z.eqb_spec e 0); [done|auto]. }
  step_call H st. on_status H st; [|by destruct H as [_ <-]].
  step_call H submit. destruct submit as [st id]. cbn [fst snd] in H.
  on_status H st; [|by destruct H as [_ <-]].
  step_call H st. on_status H st; [|destruct H as [_ <-]; split; [done|]; cbn; split; [done|];
      by destruct (bool_decide _)].
  step_call H taken. destruct taken as [st info]. cbn [fst snd] in H.
  on_status H st; [|by destruct H as [_ <-]].
  destruct H as [-> <-]. destruct (probed_spec device info) as (-> & -> & _ & Hc & Hu & _).
  split; [done|]. split; [done|]. split; [by exists id|]. split; [exact Hc|exact Hu].
Qed.

(** ** Waiting *)

#[export] Instance discovery_clock : Clock discovery_call := fun ev =>
  match ev with
  | Event c r =>
      match c in discovery_call R return R -> list Z with
      | SteadyNow => fun r => [r]
      | _ => fun _ => []
      end r
  end.

Lemma steady_now prev now l : advancing prev (Event SteadyNow now :: l) -> prev < now /\ advancing now l.
Proof. by apply (advancing_reading _ _ [Event SteadyNow now]). Qed.

Lemma discover_error codes o l r :
  runs (discoverDevices codes o) l r ->
  dr_error r = DiscoveryError.kNone \/ dr_error r = DiscoveryError.kEnumerationFailed.
Proof.
  unfold discoverDevices. intros H. step_call H listed.
  destruct (discoverUsbBulkDevices _ _ _) as [ds e]. destruct (negb _); [destruct H as [_ <-]; auto|].
  apply runs_bind in H as (l1 & l2 & found & -> & _ & [_ <-]). auto.
Qed.

(** The trace ends with a discovery, and [r] is the selection from what it found. *)
Definition just_selected (codes : usb_errors) (sel : DeviceSelector) (l : list (event discovery_call))
    (r : DeviceSelectionResult) : Prop :=
  exists l1 l2 found, l = l1 ++ l2 /\ runs (discoverDevices codes (wait_options sel)) l2 found /\
    r = selectDevice (dr_devices found) sel.

Definition wait_outcome (codes : usb_errors) (sel : DeviceSelector) (deadline : Z)
    (l : list (event discovery_call)) (r : DeviceSelectionResult) : Prop :=
  (sl_error r = DiscoveryError.kNone /\ just_selected codes sel l r /\
     exists d, sl_device r = Some d /\ matches d sel) \/
  (sl_error r = DiscoveryError.kAmbiguous /\ just_selected codes sel l r /\
     (2 <= length (sl_candidates r))%nat /\ Forall (fun d => matches d sel) (sl_candidates r)) \/
  (sl_error r = DiscoveryError.kTimeout /\ exists t, list.last (readings l) = Some t /\ deadline <= t) \/
  sl_error r = DiscoveryError.kEnumerationFailed.

(** A selection that [waitForDevice] returns. *)
Lemma selection_outcome codes devices sel deadline l :
  let r := selectDevice devices sel in
  just_selected codes sel l r -> selected r || bool_decide (sl_error r = DiscoveryError.kAmbiguous) = true ->
  wait_outcome codes sel deadline l r.
Proof.
  cbv zeta. intros Hj. revert Hj. unfold wait_outcome.
  generalize (just_selected codes sel l (selectDevice devices sel)) as J. intros J HJ.
  unfold selectDevice.
  destruct (is_empty (ds_serial_number sel) || is_empty (ds_custom_name sel)) eqn:Hv; [done|].
  apply valid_selector_spec in Hv. rewrite collect_filter, app_nil_l.
  assert (Forall (fun d => matches d sel) (List.filter (fun d => s_matches d sel) devices)) as Hall.
  { apply List.Forall_forall. intros d [_ Hd]%List.filter_In. by apply s_matches_spec. }
  destruct (List.filter _ devices) as [|x [|y ds]]; cbn; intros Hr; [done| |].
  - left. split; [done|]. split; [done|]. exists x. split; [done|]. by apply Forall_inv in Hall.
  - right. left. split; [done|]. split; [done|]. split; [lia|done].
Qed.

Lemma wait_outcome_app codes sel deadline l1 l2 r :
  wait_outcome codes sel deadline l2 r -> wait_outcome codes sel deadline (l1 ++ l2) r.
Proof.
  assert (just_selected codes sel l2 r -> just_selected codes sel (l1 ++ l2) r) as Hj.
  { intros (k1 & k2 & found & -> & Hr & Hs). exists (l1 ++ k1), k2, found. by rewrite <- app_assoc. }
  unfold wait_outcome. intros [(? & ? & ?)|[(? & ? & ?)|[(H & t & Ht & Hd)|H]]]; auto.
  { right. left. auto. }
  do 2 right. left. split; [done|]. exists t. split; [by apply last_readings_app|done].
Qed.

Lemma wait_loop_outcome codes fuel sel deadline poll prev l o :
  advancing prev l -> deadline - prev < Z.of_nat fuel -> 0 < Z.of_nat fuel ->
  runs (wait_loop codes fuel sel deadline poll) l o ->
  exists r, o = Some r /\ wait_outcome codes sel deadline l r.
Proof.
  revert prev l. induction fuel as [|fuel IH]; intros prev l Ha Hf Hp; [lia|]. cbn [wait_loop].
  intros (l1 & l2 & found & -> & Hdis & H)%runs_bind. apply advancing_app in Ha.
  destruct (discover_error _ _ _ _ Hdis) as [He|He]; rewrite He in H; cbn in H.
  2:{ destruct H as [_ <-]. eexists. split; [done|]. by do 3 right. }
  set (r := selectDevice (dr_devices found) sel) in *.
  destruct (selected r || bool_decide (sl_error r = DiscoveryError.kAmbiguous)) eqn:Hsel.
  { destruct H as [-> <-]. exists r. split; [done|]. rewrite app_nil_r.
    apply selection_outcome; [|done]. by exists [], l1, found. }
  step_call H now. apply steady_now in Ha as [Hlt Ha].
  destruct (Z.geb_spec now deadline) as [Hge|Hlt'].
  { destruct H as [-> <-]. eexists. split; [done|]. apply wait_outcome_app. do 2 right. left.
    split; [done|]. exists now. split; [done|lia]. }
  step_call H u. destruct (IH now l0) as (r' & -> & Hr'); [|lia|lia|done|].
  - exact Ha.
  - exists r'. split; [done|]. apply wait_outcome_app.
    apply (wait_outcome_app codes sel deadline
      [Event SteadyNow now; Event (SleepFor (Z.min poll (to_ms (deadline - now)))) u]), Hr'.
Qed.

(** Waiting for a device ends, with a meaningful answer.  If the clock
    advances from reading to reading (by a nanosecond at least), the loop stops
    by the deadline, and then: it found the one device that matches; or several
    match, and all of them are listed; or the enumeration failed; or, with a
    time-out, its last look at the clock was at or after the deadline. *)
Theorem waitForDevice_ends codes fuel sel timeout poll l o :
  0 <= timeout -> 0 < poll -> timeout * 1000000 < Z.of_nat fuel ->
  StronglySorted Z.lt (readings l) ->
  runs (waitForDevice codes fuel sel timeout poll) l o ->
  exists r start, o = Some r /\ head (readings l) = Some start /\
    wait_outcome codes sel (start + timeout * 1000000) l r.
Proof.
  intros Ht Hp Hf Hs. unfold waitForDevice.
  rewrite (proj2 (Z.ltb_ge timeout 0)), (proj2 (Z.leb_gt poll 0)) by lia. cbn [orb].
  intros H. step_call H start.
  destruct (wait_loop_outcome codes fuel sel (start + timeout * 1000000) poll start l0 o)
    as (r & -> & Hr); [exact Hs|lia|lia|done|].
  exists r, start. split; [done|]. split; [done|].
  by apply (wait_outcome_app _ _ _ [Event SteadyNow start]).
Qed.

(** A selector that [selectDevice] calls invalid is polled for until the
    deadline. *)
Lemma wait_invalid_selector codes sel deadline l r :
  ~ valid_selector sel -> wait_outcome codes sel deadline l r ->
  sl_error r = DiscoveryError.kTimeout \/ sl_error r = DiscoveryError.kEnumerationFailed.
Proof.
  intros Hv. assert (just_selected codes sel l r -> sl_error r = DiscoveryError.kInvalidSelector) as Hj.
  { intros (l1 & l2 & found & _ & _ & ->). unfold selectDevice.
    destruct (_ || _) eqn:He; [done|]. by apply valid_selector_spec in He. }
  intros [(He & Hs%Hj & _)|[(He & Hs%Hj & _)|[(? & _)|?]]]; [congruence|congruence|auto|auto].
Qed.

(** *** An environment

    One USB device is attached, its firmware answers, and the clock advances by
    a millisecond per reading. *)

Definition sample_codes : usb_errors := {|
  PermissionDenied := 1; InterfaceBusy := 2; DeviceDisconnected := 3; UsbDeviceNotFound := 4;
  error_message := fun _ => str "error" |}.

Definition sample_version : Version := {| m_major := 0; m_minor := 0; m_patch := 7 |}.
Definition sample_firmware (name : text) : DeviceInfo := {|
  fi_protocol_version := sample_version; fi_firmware_version := sample_version;
  fi_board_name := str "willow"; fi_custom_name := name;
  fi_serial_number := m_serial_number sample_usb; fi_firmware_type := kStandardArm;
  fi_command_capabilities := 0 |}.

Definition sample_answer (R : Type) (c : discovery_call R) : Z -> R * Z :=
  match c in discovery_call R return Z -> R * Z with
  | EnumerateUsb => fun now => (Ok [sample_usb], now)
  | Initialize | AttachDirectTransport _ | Start => fun now => (kOk, now)
  | LastError => fun now => (0, now)
  | GetDeviceInfo _ => fun now => ((kOk, 1), now)
  | WaitOperation _ _ => fun now => (kOk, now)
  | TakeDeviceInfo _ => fun now => ((kOk, sample_firmware (str "left arm")), now)
  | SteadyNow => fun now => (now, now + 1000000)
  | SleepFor _ => fun now => (tt, now)
  end.

Definition sample_probe := interp sample_answer (probeDevice sample_codes sample_usb 1500) 0.

Example probe_run :
  dd_compatibility (snd sample_probe) = Compatibility.kCompatible /\
  dd_display_name (snd sample_probe) = s_displayName sample_usb (Some (sample_firmware (str "left arm"))).
Proof. by vm_compute. Qed.

Definition sample_devices : list DeviceDescriptor :=
  [snd sample_probe; s_unprobed sample_usb].

Lemma probe_truthful_witness :
  dd_usb (snd sample_probe) = sample_usb /\
  dd_device_info (snd sample_probe) = Some (sample_firmware (str "left arm")).
Proof.
  assert (forall e, e <> 0 -> error_message sample_codes e <> []) as He by done.
  pose proof (probe_truthful sample_codes sample_usb 1500 (fst sample_probe) (snd sample_probe) He
    (interp_runs sample_answer _ 0)) as [H1 _].
  split; [exact H1|by vm_compute].
Defined.

Definition sample_wait (sel : DeviceSelector) (fuel : nat) (timeout : Z) :=
  interp sample_answer (waitForDevice sample_codes fuel sel timeout 1) 0.

Definition by_name := sample_wait (byCustomName (str "left arm")) 10 3.
Definition by_other := sample_wait (byCustomName (str "right arm")) 10 3.
Definition at_once := sample_wait (byCustomName (str "right arm")) 1 0.

Example wait_runs :
  option_map sl_error (snd by_name) = Some DiscoveryError.kNone /\
  option_map sl_error (snd by_other) = Some DiscoveryError.kTimeout /\
  readings (fst by_other) = [0; 1000000; 2000000; 3000000].
Proof. by vm_compute. Qed.

Lemma waitForDevice_ends_witness :
  readings (fst at_once) = [0; 1000000] /\
  exists r start, snd at_once = Some r /\ head (readings (fst at_once)) = Some start /\
    wait_outcome sample_codes (byCustomName (str "right arm")) (start + 0 * 1000000) (fst at_once) r.
Proof.
  assert (readings (fst at_once) = [0; 1000000]) as Hr by by vm_compute.
  split; [exact Hr|].
  refine (waitForDevice_ends sample_codes 1 (byCustomName (str "right arm")) 0 1
    (fst at_once) (snd at_once) ltac:(lia) ltac:(lia) ltac:(lia) _ (interp_runs sample_answer _ 0)).
  rewrite Hr. repeat constructor.
Defined.

Lemma selectDevice_spec_witness :
  sl_device (selectDevice sample_devices (byCustomName (str "left arm"))) = Some (snd sample_probe) /\
  valid_selector (byCustomName (str "left arm")) /\
  exists l1 l2, sample_devices = l1 ++ snd sample_probe :: l2 /\
    matches (snd sample_probe) (byCustomName (str "left arm")) /\
    Forall (fun d' => ~ matches d' (byCustomName (str "left arm"))) (l1 ++ l2).
Proof.
  assert (sl_device (selectDevice sample_devices (byCustomName (str "left arm"))) =
    Some (snd sample_probe)) as Hs by by vm_compute.
  split; [exact Hs|].
  exact (proj1 (proj1 (selectDevice_spec sample_devices (byCustomName (str "left arm")))
    (snd sample_probe)) Hs).
Defined.
