(* ===== verification/UpdateSession.v ===== *)
(** * Installing firmware

    [src/FirmwareUpdateSession.cpp]: reading the device's information over one
    peer session, and [rebootAndWait], which reboots into a new image and
    observes what became of it.  Both are programs ([Prog.v]) that call the
    endpoint, the upgrade client of [UpgradeClient.v], the clock and the
    scheduler.  [m_info_request] is passed as a state. *)

From Stdlib Require Import String Sorted.
From S2P Require Import Prelude UsbUri DeviceTypes Endpoint EndpointOps FciRpc UpgradeClient Prog Discovery.

(** ** Data *)

Record FirmwareDeviceInfoResult := {
  fr_error : FirmwareUpdateError;
  fr_device_status : Z;
  fr_info : option DeviceInfo;
  fr_peer_session : Z
}.
Definition info_error (e : FirmwareUpdateError) : FirmwareDeviceInfoResult :=
  {| fr_error := e; fr_device_status := 0; fr_info := None; fr_peer_session := 0 |}.

(** [operator bool], with the information. *)
Definition fr_valid (r : FirmwareDeviceInfoResult) : option DeviceInfo :=
  if decide (fr_error r = UpdateError.kNone) then fr_info r else None.

Inductive FirmwareInstallState := kUnknownInstall | kTargetConfirmed | kPreviousFirmware.
#[global] Instance FirmwareInstallState_eq_dec : EqDecision FirmwareInstallState.
Proof. solve_decision. Defined.

Record FirmwareInstallOptions := {
  io_query_timeout : Z;
  io_reboot_timeout : Z;
  io_boot_timeout : Z;
  io_poll_interval : Z
}.

Record FirmwareInstallResult := {
  ir_error : FirmwareUpdateError;
  ir_state : FirmwareInstallState;
  ir_reboot : FirmwareRebootResult;
  ir_previous_info : option DeviceInfo;
  ir_device_info : option DeviceInfo;
  ir_boot_status : option BootStatus
}.
Definition install0 : FirmwareInstallResult := {|
  ir_error := UpdateError.kNone; ir_state := kUnknownInstall;
  ir_reboot := reboot_result UpdateError.kNone; ir_previous_info := None; ir_device_info := None;
  ir_boot_status := None |}.

Definition ir_with_error (e : FirmwareUpdateError) (r : FirmwareInstallResult) := {|
  ir_error := e; ir_state := ir_state r; ir_reboot := ir_reboot r;
  ir_previous_info := ir_previous_info r; ir_device_info := ir_device_info r;
  ir_boot_status := ir_boot_status r |}.
Definition ir_with_state (st : FirmwareInstallState) (r : FirmwareInstallResult) := {|
  ir_error := ir_error r; ir_state := st; ir_reboot := ir_reboot r;
  ir_previous_info := ir_previous_info r; ir_device_info := ir_device_info r;
  ir_boot_status := ir_boot_status r |}.
Definition ir_with_previous (i : DeviceInfo) (r : FirmwareInstallResult) := {|
  ir_error := ir_error r; ir_state := ir_state r; ir_reboot := ir_reboot r;
  ir_previous_info := Some i; ir_device_info := ir_device_info r;
  ir_boot_status := ir_boot_status r |}.
Definition ir_with_reboot (b : FirmwareRebootResult) (r : FirmwareInstallResult) := {|
  ir_error := ir_error r; ir_state := ir_state r; ir_reboot := b;
  ir_previous_info := ir_previous_info r; ir_device_info := ir_device_info r;
  ir_boot_status := ir_boot_status r |}.
Definition ir_observed (i : DeviceInfo) (b : option BootStatus) (r : FirmwareInstallResult) := {|
  ir_error := ir_error r; ir_state := ir_state r; ir_reboot := ir_reboot r;
  ir_previous_info := ir_previous_info r; ir_device_info := Some i; ir_boot_status := b |}.

Definition s_sameVersion (a b : Version) : bool :=
  (m_major a =? m_major b) && (m_minor a =? m_minor b) && (m_patch a =? m_patch b).

(** [s_error] of [FirmwareUpdateSession.cpp]. *)
Definition session_error (st : FciEndpointStatus) : FirmwareUpdateError :=
  match st with
  | kOk => UpdateError.kNone
  | kBusy | kQueueFull => UpdateError.kBusy
  | kNotReady => UpdateError.kNotConnected
  | kTimeout => UpdateError.kTimeout
  | kDomainErrorStatus => UpdateError.kDeviceRejected
  | kCancelled => UpdateError.kCancelled
  | kLinkError => UpdateError.kTransportError
  | kInvalidArgument => UpdateError.kInvalidArgument
  | _ => UpdateError.kProtocolError
  end.

(** ** Calls *)

Inductive session_call : Type -> Type :=
| Now : session_call Z  (* nanoseconds *)
| TryLock : session_call bool  (* m_call_mutex *)
| PeerSession : session_call Z
| SubmitDeviceInfo (timeout_ms : Z) : session_call FciSubmitResult
| WaitInfo (id timeout : Z) : session_call unit
| TakeInfo (id : Z) : session_call (FciEndpointStatus * Z * DeviceInfo)
| BeginVerification : session_call FirmwareUpdateError
| EndVerification : session_call unit
| Reboot (mode timeout : Z) (verification : bool) : session_call FirmwareRebootResult
| QueryBoot (timeout : Z) : session_call BootStatus
| Sleep (ms : Z) : session_call unit.

(** ** Device information *)

(** The result and [m_info_request]; [None] when the fuel is used up. *)
Fixpoint s_deviceInfo (fuel : nat) (timeout request : Z)
    : prog session_call (option (FirmwareDeviceInfoResult * Z)) :=
  match fuel with
  | O => mret None
  | S fuel' =>
      if negb (valid_timeout timeout)
      then mret (Some (info_error UpdateError.kInvalidArgument, request))
      else
        start ← call Now;
        pending ← (if request =? 0 then mret false
                   else taken ← call (TakeInfo request);
                        mret (bool_decide (fst (fst taken) = kBusy)));
        if pending : bool then mret (Some (info_error UpdateError.kBusy, request))
        else
          peer ← call PeerSession;
          submit ← call (SubmitDeviceInfo (u32 timeout));
          if negb (bool_decide (fst submit = kOk))
          then mret (Some (info_error (session_error (fst submit)), 0))
          else
            let id := snd submit in
            _ ← call (WaitInfo id timeout);
            taken ← call (TakeInfo id);
            let '(st, domain, info) := taken in
            if decide (st = kBusy) then mret (Some (info_error UpdateError.kTimeout, id))
            else if negb (bool_decide (st = kOk)) then
              mret (Some ({| fr_error := session_error st; fr_device_status := domain;
                fr_info := None; fr_peer_session := 0 |}, 0))
            else
              response_peer ← call PeerSession;
              if response_peer =? 0 then mret (Some (info_error UpdateError.kProtocolError, 0))
              else if negb (peer =? 0) && negb (peer =? response_peer)
              then mret (Some (info_error UpdateError.kTransportError, 0))
              else if peer =? 0 then
                now ← call Now;
                let remaining := to_ms (start + timeout * 1000000 - now) in
                if remaining <=? 0 then mret (Some (info_error UpdateError.kTimeout, 0))
                else s_deviceInfo fuel' remaining 0
              else
                mret (Some ({| fr_error := UpdateError.kNone; fr_device_status := 0;
                  fr_info := Some info; fr_peer_session := response_peer |}, 0))
  end.

Definition deviceInfo (fuel : nat) (timeout request : Z)
    : prog session_call (option (FirmwareDeviceInfoResult * Z)) :=
  owned ← call TryLock;
  if negb owned then mret (Some (info_error UpdateError.kBusy, request))
  else s_deviceInfo fuel timeout request.

(** ** Reboot and observe *)

Definition SLOT_NONE : Z := 0.
Definition SLOT_PRIMARY : Z := 1.
Definition BOOT_IDLE : Z := 0.

Definition boot_confirmed (b : BootStatus) : bool :=
  bool_decide (bs_error b = UpdateError.kNone) && (bs_protocol_version b =? 1) &&
  (bs_boot_state b =? BOOT_IDLE) && (bs_active_slot b =? SLOT_PRIMARY) &&
  (bs_confirmed_slot b =? SLOT_PRIMARY) && (bs_pending_slot b =? SLOT_NONE) &&
  (bs_active_transfer_id b =? 0) && negb (bs_slot0_size b =? 0) && negb (bs_slot1_size b =? 0).

Definition same_identity (a b : DeviceInfo) : bool :=
  text_eqb (fi_serial_number a) (fi_serial_number b) &&
  text_eqb (fi_board_name a) (fi_board_name b) &&
  bool_decide (fi_firmware_type a = fi_firmware_type b).

(** [s_remaining]. *)
Definition remaining (deadline : Z) : prog session_call Z :=
  now ← call Now; mret (Z.max 0 (to_ms (deadline - now))).

Section install.
Variable info_fuel : nat.
Variable expected : Version.
Variable o : FirmwareInstallOptions.

(** What one round of the loop ends with. *)
Inductive round := Return (r : FirmwareInstallResult) | Break | Continue.

(** The judgement on a device that came back with new information. *)
Definition judge (deadline peer : Z) (current previous : DeviceInfo) (r : FirmwareInstallResult)
    : prog session_call (round * FirmwareInstallResult) :=
  let r := ir_observed current None r in
  if negb (same_identity current previous)
  then mret (Return (ir_with_error UpdateError.kIdentityMismatch r), r)
  else if negb (isProtocolVersionCompatible (fi_protocol_version current))
  then mret (Return (ir_with_error UpdateError.kProtocolMismatch r), r)
  else
    left ← remaining deadline;
    if left =? 0 then mret (Break, r)
    else
      left ← remaining deadline;
      boot ← call (QueryBoot (Z.min (io_query_timeout o) left));
      peer' ← call PeerSession;
      if negb (peer =? peer') then mret (Continue, r)
      else
        let r := ir_observed current (Some boot) r in
        if boot_confirmed boot then
          if s_sameVersion (fi_firmware_version current) expected
          then mret (Return (ir_with_state kTargetConfirmed r), r)
          else if s_sameVersion (fi_firmware_version current) (fi_firmware_version previous)
          then mret (Return (ir_with_state kPreviousFirmware r), r)
          else mret (Continue, r)
        else mret (Continue, r).

Fixpoint observe (fuel : nat) (deadline previous_peer : Z) (previous : DeviceInfo)
    (r : FirmwareInstallResult) (request : Z)
    : prog session_call (option (FirmwareInstallResult * Z)) :=
  match fuel with
  | O => mret None
  | S fuel' =>
      left ← remaining deadline;
      if left <=? 0 then mret (Some (ir_with_error UpdateError.kTimeout r, request))
      else
        left ← remaining deadline;
        got ← deviceInfo info_fuel (Z.min (io_query_timeout o) left) request;
        match got with
        | None => mret None
        | Some (info, request) =>
            let peer := fr_peer_session info in
            next ←
              match fr_valid info with
              | Some current =>
                  if negb (peer =? 0) && negb (peer =? previous_peer) then
                    known ← call PeerSession;
                    if peer =? known then judge deadline peer current previous r
                    else mret (Continue, r)
                  else mret (Continue, r)
              | None => mret (Continue, r)
              end;
            match fst next with
            | Return r => mret (Some (r, request))
            | Break => mret (Some (ir_with_error UpdateError.kTimeout (snd next), request))
            | Continue =>
                left ← remaining deadline;
                _ ← call (Sleep (Z.min (io_poll_interval o) left));
                observe fuel' deadline previous_peer previous (snd next) request
            end
        end
  end.

(** After the reboot: a lost response is ambiguous, so the device is observed. *)
Definition await_boot (fuel : nat) (previous_peer : Z) (previous : DeviceInfo)
    (r : FirmwareInstallResult) (request : Z) : prog session_call (option (FirmwareInstallResult * Z)) :=
  match rr_error (ir_reboot r) with
  | UpdateError.kNone | UpdateError.kTimeout | UpdateError.kTransportError =>
      now ← call Now;
      observe fuel (now + io_boot_timeout o * 1000000) previous_peer previous r request
  | e => mret (Some (ir_with_error e r, request))
  end.

(** [rebootAndWait] between [beginVerification] and the guard's destructor. *)
Definition install (fuel : nat) (request : Z) : prog session_call (option (FirmwareInstallResult * Z)) :=
  got ← deviceInfo info_fuel (io_query_timeout o) request;
  match got with
  | None => mret None
  | Some (before, request) =>
      match fr_valid before with
      | None => mret (Some (ir_with_error (fr_error before) install0, request))
      | Some previous =>
          let r := ir_with_previous previous install0 in
          let fail e := mret (Some (ir_with_error e r, request)) in
          if negb (isProtocolVersionCompatible (fi_protocol_version previous))
          then fail UpdateError.kProtocolMismatch
          else if text_eqb (fi_serial_number previous) [] || text_eqb (fi_board_name previous) []
          then fail UpdateError.kIdentityMismatch
          else if s_sameVersion expected (fi_firmware_version previous)
          then fail UpdateError.kInvalidArgument
          else
            let previous_peer := fr_peer_session before in
            if previous_peer =? 0 then fail UpdateError.kProtocolError
            else
              known ← call PeerSession;
              if negb (previous_peer =? known) then fail UpdateError.kTransportError
              else
                reboot ← call (Reboot kTryBoot (io_reboot_timeout o) true);
                await_boot fuel previous_peer previous (ir_with_reboot reboot r) request
      end
  end.

Definition rebootAndWait (fuel : nat) (request : Z)
    : prog session_call (option (FirmwareInstallResult * Z)) :=
  if negb (valid_timeout (io_query_timeout o)) || negb (valid_timeout (io_reboot_timeout o)) ||
     negb (valid_timeout (io_boot_timeout o)) || negb (valid_timeout (io_poll_interval o))
  then mret (Some (ir_with_error UpdateError.kInvalidArgument install0, request))
  else
    admission ← call BeginVerification;
    if negb (bool_decide (admission = UpdateError.kNone))
    then mret (Some (ir_with_error admission install0, request))
    else
      r ← install fuel request;
      _ ← call EndVerification;
      mret r.
End install.

(** ** Traces *)

Definition is_reboot (ev : event session_call) : bool :=
  match ev with Event c _ => match c with Reboot _ _ _ => true | _ => false end end.
Definition is_verification (ev : event session_call) : bool :=
  match ev with
  | Event c _ => match c with BeginVerification | EndVerification => true | _ => false end
  end.
Definition quiet (ev : event session_call) : Prop := is_reboot ev = false /\ is_verification ev = false.
Definition unadmitted (ev : event session_call) : Prop := is_verification ev = false.

Lemma quiet_unadmitted l : Forall quiet l -> Forall unadmitted l.
Proof. intros H. eapply List.Forall_impl; [|exact H]. by intros ev [_ ?]. Qed.

Lemma quiet_reboots l : Forall quiet l -> count_calls is_reboot l = 0%nat.
Proof. intros H. apply count_calls_none. eapply List.Forall_impl; [|exact H]. by intros ev [? _]. Qed.

(** [info] was read within one peer session [peer]: the session is the same
    before the request and after its answer. *)
Definition read_in_session (peer : Z) (info : DeviceInfo) (l : list (event session_call)) : Prop :=
  peer <> 0 /\ exists l' timeout id domain,
    l = l' ++ [Event PeerSession peer; Event (SubmitDeviceInfo (u32 timeout)) (kOk, id);
               Event (WaitInfo id timeout) tt; Event (TakeInfo id) (kOk, domain, info);
               Event PeerSession peer].

Lemma read_app peer info l1 l2 : read_in_session peer info l2 -> read_in_session peer info (l1 ++ l2).
Proof.
  intros (Hp & l' & t & id & d & ->). split; [done|]. exists (l1 ++ l'), t, id, d. by rewrite <- app_assoc.
Qed.

(** ** Device information *)

Lemma s_deviceInfo_quiet fuel timeout request : only quiet (s_deviceInfo fuel timeout request).
Proof.
  revert timeout request. induction fuel as [|fuel IH]; intros timeout request; [done|].
  cbn [s_deviceInfo]. solve_only.
Qed.
#[export] Hint Resolve s_deviceInfo_quiet : only.

Lemma deviceInfo_quiet fuel timeout request : only quiet (deviceInfo fuel timeout request).
Proof. unfold deviceInfo. solve_only. Qed.
#[export] Hint Resolve deviceInfo_quiet : only.

Lemma fr_valid_error e : fr_valid (info_error e) = None.
Proof. unfold fr_valid. by destruct (decide _). Qed.

Lemma s_deviceInfo_read fuel timeout request l r request' info :
  runs (s_deviceInfo fuel timeout request) l (Some (r, request')) -> fr_valid r = Some info ->
  read_in_session (fr_peer_session r) info l.
Proof.
  revert timeout request l. induction fuel as [|fuel IH]; intros timeout request l H Hv.
  { by destruct H. }
  cbn [s_deviceInfo] in H. destruct (negb (valid_timeout timeout)).
  { destruct H as [_ [= <- <-]]. by rewrite fr_valid_error in Hv. }
  step_call H start. apply runs_bind in H as (l1 & l2 & pending & -> & _ & H).
  apply (read_app _ _ (Event Now start :: l1)).
  destruct pending; [destruct H as [_ [= <- <-]]; by rewrite fr_valid_error in Hv|].
  step_call H peer. step_call H submit. destruct submit as [st id]. cbn [fst snd] in H.
  on_status H st; [|destruct H as [_ [= <- <-]]; by rewrite fr_valid_error in Hv].
  step_call H u. step_call H taken. destruct taken as [[st domain] info'].
  destruct (decide (st = kBusy)); [destruct H as [_ [= <- <-]]; by rewrite fr_valid_error in Hv|].
  on_status H st.
  2:{ destruct H as [_ [= <- <-]]. unfold fr_valid in Hv. cbn in Hv. by destruct (decide _). }
  step_call H peer'. destruct (Z.eqb_spec peer' 0) as [|Hp].
  { destruct H as [_ [= <- <-]]. by rewrite fr_valid_error in Hv. }
  destruct (Z.eqb_spec peer 0) as [->|Hp0]; cbn [negb andb] in H.
  - step_call H now. destruct (_ <=? 0); [destruct H as [_ [= <- <-]]; by rewrite fr_valid_error in Hv|].
    eapply (read_app _ _ [_; _; _; _; _; _]), IH; [exact H|done].
  - destruct (Z.eqb_spec peer peer') as [<-|]; cbn [negb] in H.
    2:{ destruct H as [_ [= <- <-]]. by rewrite fr_valid_error in Hv. }
    destruct H as [-> [= <- <-]]. cbn in Hv |- *. injection Hv as ->. destruct u. split; [done|].
    by exists [], timeout, id, domain.
Qed.

Lemma deviceInfo_read fuel timeout request l r request' info :
  runs (deviceInfo fuel timeout request) l (Some (r, request')) -> fr_valid r = Some info ->
  read_in_session (fr_peer_session r) info l.
Proof.
  unfold deviceInfo. intros H Hv. step_call H owned. destruct owned; cbn [negb] in H.
  - by apply (read_app _ _ [_]), (s_deviceInfo_read _ _ _ _ _ _ _ H).
  - destruct H as [_ [= <- <-]]. by rewrite fr_valid_error in Hv.
Qed.

(** ** Observing the reboot *)

Lemma s_sameVersion_spec a b : s_sameVersion a b = true <-> a = b.
Proof.
  destruct a as [a1 a2 a3], b as [b1 b2 b3]. unfold s_sameVersion. cbn.
  rewrite !andb_true_iff, !Z.eqb_eq. split; [by intros [[-> ->] ->]|by intros [= -> -> ->]].
Qed.

Lemma remaining_run deadline l a : runs (remaining deadline) l a -> exists now, l = [Event Now now].
Proof. unfold remaining. intros H. step_call H now. destruct H as [-> _]. by exists now. Qed.

(** The device [current] of session [peer] is the rebooted [previous], is on
    its confirmed primary image, and [st] says which one that is. *)
Definition judged (expected : Version) (current previous : DeviceInfo) (boot : BootStatus)
    (st : FirmwareInstallState) : Prop :=
  fi_serial_number current = fi_serial_number previous /\
  fi_board_name current = fi_board_name previous /\
  fi_firmware_type current = fi_firmware_type previous /\
  isProtocolVersionCompatible (fi_protocol_version current) = true /\
  boot_confirmed boot = true /\
  (st = kTargetConfirmed /\ fi_firmware_version current = expected \/
   st = kPreviousFirmware /\ fi_firmware_version current = fi_firmware_version previous /\
     fi_firmware_version current <> expected).

Lemma same_identity_spec a b :
  same_identity a b = true ->
  fi_serial_number a = fi_serial_number b /\ fi_board_name a = fi_board_name b /\
  fi_firmware_type a = fi_firmware_type b.
Proof.
  unfold same_identity, text_eqb. rewrite !andb_true_iff, !bool_decide_eq_true. tauto.
Qed.

(** A result that is still open, and one that [rebootAndWait] returns. *)
Definition open_result (previous : DeviceInfo) (reboot : FirmwareRebootResult) (r : FirmwareInstallResult) : Prop :=
  ir_error r = UpdateError.kNone /\ ir_state r = kUnknownInstall /\
  ir_previous_info r = Some previous /\ ir_reboot r = reboot.

Definition failed_result (r : FirmwareInstallResult) : Prop :=
  ir_error r <> UpdateError.kNone /\ ir_state r = kUnknownInstall.

Definition observed_in (expected : Version) (previous : DeviceInfo) (previous_peer : Z)
    (r : FirmwareInstallResult) (l : list (event session_call)) : Prop :=
  exists l' peer now now' timeout current boot,
    l = l' ++ [Event PeerSession peer; Event Now now; Event Now now';
               Event (QueryBoot timeout) boot; Event PeerSession peer] /\
    read_in_session peer current l' /\ peer <> previous_peer /\
    ir_error r = UpdateError.kNone /\ ir_device_info r = Some current /\
    ir_boot_status r = Some boot /\ judged expected current previous boot (ir_state r).

Definition settled (expected : Version) (previous : DeviceInfo) (previous_peer : Z)
    (reboot : FirmwareRebootResult) (r : FirmwareInstallResult) (l : list (event session_call)) : Prop :=
  ir_previous_info r = Some previous /\ ir_reboot r = reboot /\
  (failed_result r \/ observed_in expected previous previous_peer r l).

Lemma settled_app expected previous peer reboot r l1 l2 :
  settled expected previous peer reboot r l2 -> settled expected previous peer reboot r (l1 ++ l2).
Proof.
  intros (? & ? & [?|Ho]); split_and!; try done; [by left|right].
  destruct Ho as (l' & p & n & n' & t & c & b & -> & Hr & Ho).
  exists (l1 ++ l'), p, n, n', t, c, b. rewrite <- app_assoc. split; [done|].
  split; [by apply read_app|done].
Qed.

Lemma open_failed previous peer expected reboot r e l :
  open_result previous reboot r -> e <> UpdateError.kNone ->
  settled expected previous peer reboot (ir_with_error e r) l.
Proof. intros (? & ? & ? & ?) He. split_and!; [done..|]. by left. Qed.

Section observing.
Variables (info_fuel : nat) (expected : Version) (o : FirmwareInstallOptions).

Lemma judge_quiet deadline peer current previous r :
  only quiet (judge expected o deadline peer current previous r).
Proof. unfold judge, remaining. solve_only. Qed.

Lemma observe_quiet fuel deadline peer previous r request :
  only quiet (observe info_fuel expected o fuel deadline peer previous r request).
Proof.
  revert r request. induction fuel as [|fuel IH]; intros r request; [done|].
  cbn [observe]. unfold remaining. pose proof judge_quiet. solve_only.
Qed.

Lemma judge_run deadline peer previous_peer current previous reboot r l1 l next r' :
  open_result previous reboot r -> read_in_session peer current l1 -> peer <> previous_peer ->
  runs (judge expected o deadline peer current previous r) l (next, r') ->
  open_result previous reboot r' /\
  forall res, next = Return res ->
    settled expected previous previous_peer reboot res (l1 ++ Event PeerSession peer :: l).
Proof.
  intros Ho Hr Hp. unfold judge.
  assert (forall b, open_result previous reboot (ir_observed current b r)) as Hop by done.
  destruct (same_identity current previous) eqn:Hid; cbn [negb].
  2:{ intros [_ [= <- <-]]. split; [apply Hop|]. intros res [= <-]. by apply open_failed. }
  destruct (isProtocolVersionCompatible _) eqn:Hv; cbn [negb].
  2:{ intros [_ [= <- <-]]. split; [apply Hop|]. intros res [= <-]. by apply open_failed. }
  intros (k1 & k2 & left & -> & (now & ->)%remaining_run & H)%runs_bind.
  destruct (left =? 0); [by destruct H as [_ [= <- <-]]|].
  apply runs_bind in H as (k3 & k4 & left' & -> & (now' & ->)%remaining_run & H).
  step_call H boot. step_call H peer'. destruct (Z.eqb_spec peer peer') as [<-|]; cbn [negb] in H.
  2:{ by destruct H as [_ [= <- <-]]. }
  destruct (boot_confirmed boot) eqn:Hb; [|by destruct H as [_ [= <- <-]]].
  destruct (same_identity_spec _ _ Hid) as (Hs & Hbd & Hty).
  assert (forall st, st = kTargetConfirmed /\ fi_firmware_version current = expected \/
     st = kPreviousFirmware /\ fi_firmware_version current = fi_firmware_version previous /\
     fi_firmware_version current <> expected ->
     settled expected previous previous_peer reboot (ir_with_state st (ir_observed current (Some boot) r))
       (l1 ++ Event PeerSession peer :: [Event Now now] ++ [Event Now now'] ++
        [Event (QueryBoot (Z.min (io_query_timeout o) left')) boot; Event PeerSession peer])) as Hset.
  { intros st Hst. destruct Ho as (He & ? & ? & ?). split_and!; [done..|]. right.
    exists l1, peer, now, now', (Z.min (io_query_timeout o) left'), current, boot. by split_and!. }
  destruct (s_sameVersion _ expected) eqn:Hexp.
  { apply s_sameVersion_spec in Hexp. destruct H as [-> [= <- <-]]. split; [apply Hop|].
    intros res [= <-]. apply Hset. by left. }
  assert (fi_firmware_version current <> expected) as Hne.
  { rewrite <- s_sameVersion_spec, Hexp. done. }
  destruct (s_sameVersion _ (fi_firmware_version previous)) eqn:Hprev.
  - apply s_sameVersion_spec in Hprev. destruct H as [-> [= <- <-]]. split; [apply Hop|].
    intros res [= <-]. apply Hset. by right.
  - destruct H as [_ [= <- <-]]. by split.
Qed.

Lemma observe_run fuel deadline previous_peer previous reboot r request l r' request' :
  open_result previous reboot r ->
  runs (observe info_fuel expected o fuel deadline previous_peer previous r request) l (Some (r', request')) ->
  settled expected previous previous_peer reboot r' l.
Proof.
  revert r request l. induction fuel as [|fuel IH]; intros r request l Ho H; [by destruct H|].
  cbn [observe] in H. apply runs_bind in H as (k1 & k2 & left & -> & (now & ->)%remaining_run & H).
  destruct (left <=? 0); [destruct H as [-> [= <- <-]]; by apply open_failed|].
  apply runs_bind in H as (k3 & k4 & left' & -> & (now' & ->)%remaining_run & H).
  apply runs_bind in H as (k5 & k6 & got & -> & Hinfo & H).
  destruct got as [[info request1]|]; [|by destruct H].
  apply runs_bind in H as (k7 & k8 & next & -> & Hnext & H).
  do 2 apply settled_app.
  assert (open_result previous reboot (snd next) /\
    forall res, fst next = Return res -> settled expected previous previous_peer reboot res (k5 ++ k7))
    as [Hopen Hret].
  { assert (runs (mret (Continue, r)) k7 next -> open_result previous reboot (snd next) /\
      forall res, fst next = Return res -> settled expected previous previous_peer reboot res (k5 ++ k7)) as Hc.
    { by intros [_ <-]. }
    destruct (fr_valid info) as [current|] eqn:Hv; [|by apply Hc].
    pose proof (deviceInfo_read _ _ _ _ _ _ _ Hinfo Hv) as Hread.
    destruct (negb (fr_peer_session info =? 0)); cbn [andb] in Hnext; [|by apply Hc].
    destruct (Z.eqb_spec (fr_peer_session info) previous_peer) as [|Hne]; cbn [negb] in Hnext; [by apply Hc|].
    step_call Hnext known. destruct (Z.eqb_spec (fr_peer_session info) known) as [<-|].
    2:{ by destruct Hnext as [_ <-]. }
    destruct next as [next r1]. cbn [fst snd].
    by apply (judge_run _ _ _ _ _ _ _ _ _ _ _ Ho Hread Hne Hnext). }
  destruct (fst next) as [res| |] eqn:Hn.
  - destruct H as [-> [= <- <-]]. rewrite app_nil_r. by apply Hret.
  - destruct H as [_ [= <- <-]]. by apply open_failed.
  - apply runs_bind in H as (k9 & k10 & left'' & -> & _ & H). step_call H u.
    do 3 apply settled_app. apply IH in H; [|done]. by apply (settled_app _ _ _ _ _ [_]).
Qed.
End observing.

(** ** Installing *)

Lemma session_error_none st : session_error st = UpdateError.kNone -> st = kOk.
Proof. by destruct st. Qed.

Lemma s_deviceInfo_valid fuel timeout request l r request' :
  runs (s_deviceInfo fuel timeout request) l (Some (r, request')) ->
  fr_error r = UpdateError.kNone -> exists info, fr_valid r = Some info.
Proof.
  revert timeout request l. induction fuel as [|fuel IH]; intros timeout request l H He; [by destruct H|].
  cbn [s_deviceInfo] in H. destruct (negb (valid_timeout timeout)); [by destruct H as [_ [= <- <-]]|].
  step_call H start. apply runs_bind in H as (l1 & l2 & pending & _ & _ & H).
  destruct pending; [by destruct H as [_ [= <- <-]]|].
  step_call H peer. step_call H submit. destruct submit as [st id]. cbn [fst snd] in H.
  on_status H st; [|by destruct H as [_ [= <- <-]]; apply session_error_none in He].
  step_call H u. step_call H taken. destruct taken as [[st domain] info].
  destruct (decide (st = kBusy)); [by destruct H as [_ [= <- <-]]|].
  on_status H st; [|by destruct H as [_ [= <- <-]]; apply session_error_none in He].
  step_call H peer'. destruct (_ =? 0); [by destruct H as [_ [= <- <-]]|].
  destruct (_ && _); [by destruct H as [_ [= <- <-]]|].
  destruct (_ =? 0).
  - step_call H now. destruct (_ <=? 0); [by destruct H as [_ [= <- <-]]|]. by eapply IH.
  - destruct H as [_ [= <- <-]]. by exists info.
Qed.

Lemma deviceInfo_invalid fuel timeout request l r request' :
  runs (deviceInfo fuel timeout request) l (Some (r, request')) -> fr_valid r = None ->
  fr_error r <> UpdateError.kNone.
Proof.
  unfold deviceInfo. intros H Hv He. step_call H owned. destruct owned; cbn [negb] in H.
  - apply s_deviceInfo_valid in H as [info Hi]; [congruence|done].
  - by destruct H as [_ [= <- <-]].
Qed.

(** A device that [rebootAndWait] may reboot into [expected]. *)
Definition installable (expected : Version) (previous : DeviceInfo) : Prop :=
  isProtocolVersionCompatible (fi_protocol_version previous) = true /\
  fi_serial_number previous <> [] /\ fi_board_name previous <> [] /\
  fi_firmware_version previous <> expected.

(** The one reboot of a trace, with what came before and after it. *)
Definition rebooted (expected : Version) (o : FirmwareInstallOptions) (previous : DeviceInfo)
    (peer : Z) (reboot : FirmwareRebootResult) (l l2 : list (event session_call)) : Prop :=
  exists l1,
    l = l1 ++ Event PeerSession peer :: Event (Reboot kTryBoot (io_reboot_timeout o) true) reboot :: l2 /\
    Forall quiet l1 /\ Forall quiet l2 /\ read_in_session peer previous l1 /\
    installable expected previous.

Section installing.
#[local] Hint Resolve List.Forall_nil : core.
Variables (info_fuel : nat) (expected : Version) (o : FirmwareInstallOptions).

Lemma await_boot_quiet fuel peer previous r request :
  only quiet (await_boot info_fuel expected o fuel peer previous r request).
Proof. unfold await_boot. pose proof observe_quiet. solve_only. Qed.

Lemma await_boot_run fuel peer previous reboot r request l r' request' :
  open_result previous reboot r ->
  runs (await_boot info_fuel expected o fuel peer previous r request) l (Some (r', request')) ->
  settled expected previous peer reboot r' l.
Proof.
  intros Ho. unfold await_boot.
  assert (forall e, e <> UpdateError.kNone ->
    l = [] /\ Some (ir_with_error e r, request) = Some (r', request') ->
    settled expected previous peer reboot r' l) as Hstop.
  { intros e He [_ [= <- <-]]. by apply open_failed. }
  destruct (rr_error (ir_reboot r)); intros H; try (by apply Hstop in H);
    step_call H now; apply (settled_app _ _ _ _ _ [_]); by eapply observe_run.
Qed.

(** The admission checks: the install goes on with a device it may reboot, or
    ends with an error and without a reboot. *)
Lemma install_run fuel request l out :
  runs (install info_fuel expected o fuel request) l out ->
  (Forall quiet l /\ forall r q, out = Some (r, q) -> failed_result r) \/
  exists previous peer reboot l2 request1,
    rebooted expected o previous peer reboot l l2 /\
    runs (await_boot info_fuel expected o fuel peer previous
      (ir_with_reboot reboot (ir_with_previous previous install0)) request1) l2 out.
Proof.
  unfold install. intros (l1 & l2 & got & -> & Hinfo & H)%runs_bind.
  pose proof (only_runs quiet _ _ _ (deviceInfo_quiet _ _ _) Hinfo) as Hq1.
  assert (forall res k, Forall quiet k -> (forall r q, res = Some (r, q) -> failed_result r) ->
    l2 = k /\ res = out ->
    Forall quiet (l1 ++ l2) /\ forall r q, out = Some (r, q) -> failed_result r) as Hend.
  { intros res k Hk Hres [-> <-]. split; [by apply Forall_app|done]. }
  destruct got as [[before request1]|]; [|left; by apply (Hend None [])].
  destruct (fr_valid before) as [previous|] eqn:Hv.
  2:{ left. eapply (Hend _ []); [constructor| |exact H]. intros r q [= <- _].
      split; [|done]. by eapply deviceInfo_invalid. }
  assert (forall e k, e <> UpdateError.kNone -> Forall quiet k ->
    l2 = k /\ Some (ir_with_error e (ir_with_previous previous install0), request1) = out ->
    Forall quiet (l1 ++ l2) /\ forall r q, out = Some (r, q) -> failed_result r) as Hfail.
  { intros e k He Hk. apply Hend; [done|]. by intros r q [= <- _]. }
  cbv zeta in H.
  destruct (isProtocolVersionCompatible _) eqn:Hver; cbn [negb] in H; [|left; by apply Hfail in H].
  destruct (text_eqb (fi_serial_number previous) [] || _) eqn:Hid; [left; by apply Hfail in H|].
  destruct (s_sameVersion expected _) eqn:Hsame; [left; by apply Hfail in H|].
  destruct (_ =? 0); [left; by apply Hfail in H|].
  step_call H known. destruct (Z.eqb_spec (fr_peer_session before) known) as [<-|]; cbn [negb] in H.
  2:{ left. destruct H as [-> H]. eapply (Hfail UpdateError.kTransportError); [done| |by split; [|exact H]]. by repeat constructor. }
  step_call H reboot. right. exists previous, (fr_peer_session before), reboot, l0, request1.
  split; [|exact H]. exists l1. split; [done|]. split; [done|].
  split; [eapply only_runs; [apply await_boot_quiet|exact H]|].
  split; [by eapply deviceInfo_read|].
  split; [done|]. unfold text_eqb in Hid.
  apply orb_false_iff in Hid as [?%bool_decide_eq_false ?%bool_decide_eq_false].
  split_and!; [done..|]. intros Heq. symmetry in Heq. apply s_sameVersion_spec in Heq. congruence.
Qed.
End installing.

(** ** What an install does *)

Definition valid_options (o : FirmwareInstallOptions) : bool :=
  valid_timeout (io_query_timeout o) && valid_timeout (io_reboot_timeout o) &&
  valid_timeout (io_boot_timeout o) && valid_timeout (io_poll_interval o).

(** The three ways of [rebootAndWait]: nothing is done, the upgrade client
    refuses, or the install runs between [beginVerification] and
    [endVerification]. *)
Lemma rebootAndWait_run info_fuel expected o fuel request l out :
  runs (rebootAndWait info_fuel expected o fuel request) l out ->
  (valid_options o = false /\ l = [] /\
     out = Some (ir_with_error UpdateError.kInvalidArgument install0, request)) \/
  (exists e, e <> UpdateError.kNone /\ l = [Event BeginVerification e] /\
     out = Some (ir_with_error e install0, request)) \/
  valid_options o = true /\
  exists l', l = Event BeginVerification UpdateError.kNone :: l' ++ [Event EndVerification tt] /\
    runs (install info_fuel expected o fuel request) l' out.
Proof.
  unfold rebootAndWait, valid_options.
  destruct (valid_timeout (io_query_timeout o)), (valid_timeout (io_reboot_timeout o)),
    (valid_timeout (io_boot_timeout o)), (valid_timeout (io_poll_interval o)); cbn [negb orb andb];
    try (intros [-> <-]; by left).
  intros H. right. step_call H e. destruct (decide (e = UpdateError.kNone)) as [->|He].
  - right. split; [done|]. rewrite bool_decide_true in H by done. cbn [negb] in H.
    apply runs_bind in H as (l1 & l2 & r & -> & Hi & H). step_call H u. destruct H as [-> <-].
    destruct u. by exists l1.
  - left. rewrite bool_decide_false in H by done. destruct H as [-> <-]. by exists e.
Qed.

Lemma rebooted_once expected o previous peer reboot l l2 :
  rebooted expected o previous peer reboot l l2 -> count_calls is_reboot l = 1%nat /\ Forall unadmitted l.
Proof.
  intros (l1 & -> & H1 & H2 & _). split.
  - rewrite count_calls_app. cbn. by rewrite !quiet_reboots.
  - apply Forall_app. split; [by apply quiet_unadmitted|]. by repeat constructor; [..|apply quiet_unadmitted].
Qed.

(** Installing reboots the device at most once, and only a device it may
    reboot.  Whatever the endpoint, the client and the clock answer: the
    upgrade client is told the beginning and the end of the verification
    exactly once each, around everything else; the one [Reboot] is a trial boot
    of this session, sent only after the device's information was read within
    one peer session that is still the current one, with a supported protocol
    version, a serial number, a board name and a version other than the
    expected one; and nothing that happens later makes it reboot again. *)
Theorem install_reboots_once info_fuel expected o fuel request l out :
  runs (rebootAndWait info_fuel expected o fuel request) l out ->
  (count_calls is_reboot l <= 1)%nat /\
  (l = [] \/ (exists e, e <> UpdateError.kNone /\ l = [Event BeginVerification e]) \/
   exists l', l = Event BeginVerification UpdateError.kNone :: l' ++ [Event EndVerification tt] /\
     Forall unadmitted l' /\
     (count_calls is_reboot l' = 0%nat \/
      exists previous peer reboot l2, rebooted expected o previous peer reboot l' l2)).
Proof.
  intros [(_ & -> & _)|[(e & He & -> & _)|(_ & l' & -> & Hi)]]%rebootAndWait_run.
  - split; [cbn; lia|by left].
  - split; [cbn; lia|]. right. left. by exists e.
  - cbn. rewrite count_calls_app. cbn.
    apply install_run in Hi as [[Hq _]|(previous & peer & reboot & l2 & request1 & Hreb & _)].
    + rewrite quiet_reboots by done. split; [lia|]. do 2 right. exists l'. split; [done|].
      split; [by apply quiet_unadmitted|]. left. by apply quiet_reboots.
    + destruct (rebooted_once _ _ _ _ _ _ _ Hreb) as [-> Hu]. split; [lia|]. do 2 right.
      exists l'. split; [done|]. split; [done|]. right. by exists previous, peer, reboot, l2.
Qed.

(** C25: an install reports an image only when it saw it run.  Its result has
    an install state exactly when it has no error; then the information from
    before and after the reboot, and the boot status, are in the result; the
    new information and the boot status were read in one peer session that is
    not the one from before the reboot; serial number, board and firmware type
    are those of the device that was rebooted; its protocol version is
    supported; its boot status shows an idle, confirmed primary image without
    a pending one; and [kTargetConfirmed] means that it runs the expected
    version, [kPreviousFirmware] that it runs the previous one. *)
Theorem install_confirmed info_fuel expected o fuel request l r request' :
  runs (rebootAndWait info_fuel expected o fuel request) l (Some (r, request')) ->
  (ir_error r = UpdateError.kNone <-> ir_state r <> kUnknownInstall) /\
  (ir_error r = UpdateError.kNone ->
   exists previous peer l1 l2,
     l = l1 ++ Event (Reboot kTryBoot (io_reboot_timeout o) true) (ir_reboot r) ::
         l2 ++ [Event EndVerification tt] /\
     ir_previous_info r = Some previous /\ installable expected previous /\
     observed_in expected previous peer r l2).
Proof.
  assert (forall x, failed_result x -> ir_error x = UpdateError.kNone <-> ir_state x <> kUnknownInstall) as Hfail.
  { intros x [He Hst]. split; intros; congruence. }
  intros [(_ & _ & [= -> _])|[(e & He & _ & [= -> _])|(_ & l' & -> & Hi)]]%rebootAndWait_run.
  1,2: split; [by apply Hfail|by intros].
  apply install_run in Hi as [[_ Hf]|(previous & peer & reboot & l2 & request1 & Hreb & Hrun)].
  { specialize (Hf _ _ eq_refl). split; [by apply Hfail|]. intros He. by destruct Hf. }
  apply (await_boot_run _ _ _ _ _ _ reboot) in Hrun; [|done].
  destruct Hrun as (Hprev & <- & [Hf|Ho]).
  { split; [by apply Hfail|]. intros He. by destruct Hf. }
  destruct Hreb as (l1 & -> & _ & _ & _ & Hins). split.
  - destruct Ho as (k & p & n & n' & t & c & b & _ & _ & _ & -> & _ & _ & (_ & _ & _ & _ & _ & Hj)).
    destruct Hj as [[-> _]|[-> _]]; done.
  - intros _. exists previous, peer, (Event BeginVerification UpdateError.kNone :: l1 ++ [Event PeerSession peer]), l2.
    split; [|done]. cbn. by rewrite <- !app_assoc.
Qed.

(** ** Termination *)

#[export] Instance session_clock : Clock session_call := fun ev =>
  match ev with
  | Event c r =>
      match c in session_call R return R -> list Z with
      | Now => fun r => [r]
      | _ => fun _ => []
      end r
  end.

Lemma session_now prev now l : advancing prev (Event Now now :: l) -> prev < now /\ advancing now l.
Proof. by apply (advancing_reading _ _ [Event Now now]). Qed.

Lemma to_ms_bounds n : (0 < to_ms n -> 0 < n) /\ forall t, 0 <= t -> n < t * 1000000 -> to_ms n < t \/ to_ms n <= 0.
Proof.
  unfold to_ms. split.
  - intros H. destruct (Z.le_gt_cases n 0) as [Hn|]; [|done].
    assert (Z.quot n 1000000 <= 0) by (apply Z.quot_le_upper_bound; lia). lia.
  - intros t Ht Hn. destruct (Z.le_gt_cases n 0) as [Hn0|Hn0].
    + right. apply Z.quot_le_upper_bound; lia.
    + left. apply Z.quot_lt_upper_bound; lia.
Qed.

Lemma s_deviceInfo_ends fuel timeout request prev l out :
  advancing prev l -> 0 < Z.of_nat fuel -> timeout < Z.of_nat fuel ->
  runs (s_deviceInfo fuel timeout request) l out -> exists x, out = Some x.
Proof.
  revert timeout request prev l. induction fuel as [|fuel IH]; intros timeout request prev l Ha Hf Ht H; [lia|].
  cbn [s_deviceInfo] in H. destruct (valid_timeout timeout) eqn:Hv; cbn [negb] in H.
  2:{ destruct H as [_ <-]. eauto. }
  step_call H start. apply session_now in Ha as [_ Ha].
  apply runs_bind in H as (l1 & l2 & pending & -> & _ & H). apply advancing_app in Ha.
  destruct pending; [destruct H as [_ <-]; eauto|].
  step_call H peer. step_call H submit. destruct (negb _); [destruct H as [_ <-]; eauto|].
  step_call H u. step_call H taken. destruct taken as [[st domain] info].
  destruct (decide (st = kBusy)); [destruct H as [_ <-]; eauto|].
  destruct (negb _); [destruct H as [_ <-]; eauto|].
  step_call H peer'. destruct (_ =? 0); [destruct H as [_ <-]; eauto|].
  destruct (_ && _); [destruct H as [_ <-]; eauto|].
  destruct (_ =? 0); [|destruct H as [_ <-]; eauto].
  step_call H now. apply (advancing_app _ [_; _; _; _; _]), session_now in Ha as [Hlt Ha].
  destruct (Z.leb_spec (to_ms (start + timeout * 1000000 - now)) 0); [destruct H as [_ <-]; eauto|].
  apply andb_true_iff in Hv as [Hv _]. rewrite Z.gtb_lt in Hv.
  destruct (proj2 (to_ms_bounds (start + timeout * 1000000 - now)) timeout); [lia|lia| |lia].
  eapply IH; [exact Ha| | |exact H]; lia.
Qed.

Lemma deviceInfo_ends fuel timeout request prev l out :
  advancing prev l -> 0 < Z.of_nat fuel -> timeout < Z.of_nat fuel ->
  runs (deviceInfo fuel timeout request) l out -> exists x, out = Some x.
Proof.
  unfold deviceInfo. intros Ha Hf Ht H. step_call H owned. apply (advancing_app _ [_]) in Ha.
  destruct owned; cbn [negb] in H; [by eapply s_deviceInfo_ends|destruct H as [_ <-]; eauto].
Qed.

Lemma remaining_reading deadline prev l a l' :
  runs (remaining deadline) l a -> advancing prev (l ++ l') ->
  exists now, prev < now /\ advancing now l' /\ (0 < a -> now < deadline).
Proof.
  unfold remaining. intros H Ha. step_call H now. destruct H as [-> <-].
  apply session_now in Ha as [Hlt Ha]. exists now. split_and!; [done..|].
  pose proof (proj1 (to_ms_bounds (deadline - now))). lia.
Qed.

Section ending.
Variables (info_fuel : nat) (expected : Version) (o : FirmwareInstallOptions).
Hypothesis Hquery : io_query_timeout o < Z.of_nat info_fuel.
Hypothesis Hpos : 0 < Z.of_nat info_fuel.

Lemma observe_ends fuel deadline peer previous r request prev l out :
  advancing prev l -> 0 < Z.of_nat fuel -> deadline - prev < Z.of_nat fuel ->
  runs (observe info_fuel expected o fuel deadline peer previous r request) l out -> exists x, out = Some x.
Proof.
  revert r request prev l. induction fuel as [|fuel IH]; intros r request prev l Ha Hf Hd H; [lia|].
  cbn [observe] in H. apply runs_bind in H as (k1 & k2 & left & -> & Hleft & H).
  eapply remaining_reading in Ha as (now & Hlt & Ha & Hnow); [|exact Hleft].
  destruct (Z.leb_spec left 0); [destruct H as [_ <-]; eauto|]. specialize (Hnow ltac:(lia)).
  apply runs_bind in H as (k3 & k4 & left' & -> & _ & H). apply advancing_app in Ha.
  apply runs_bind in H as (k5 & k6 & got & -> & Hinfo & H).
  destruct (deviceInfo_ends info_fuel (Z.min (io_query_timeout o) left') request now k5 got) as [[info request1] ->];
    [by eapply advancing_app_l|done|lia|exact Hinfo|].
  apply advancing_app in Ha. apply runs_bind in H as (k7 & k8 & next & -> & _ & H).
  apply advancing_app in Ha. destruct (fst next); [destruct H as [_ <-]; eauto..|].
  apply runs_bind in H as (k9 & k10 & left'' & -> & _ & H). step_call H u.
  apply advancing_app, (advancing_app _ [_]) in Ha.
  eapply (IH _ _ now); [exact Ha| | |exact H]; lia.
Qed.

Lemma await_boot_ends fuel peer previous r request prev l out :
  advancing prev l -> 0 < Z.of_nat fuel -> io_boot_timeout o * 1000000 < Z.of_nat fuel ->
  runs (await_boot info_fuel expected o fuel peer previous r request) l out -> exists x, out = Some x.
Proof.
  intros Ha Hf Ht. unfold await_boot. destruct (rr_error (ir_reboot r)); intros H;
    first [destruct H as [_ <-]; by eauto|step_call H now; apply session_now in Ha as [_ Ha]];
    (eapply observe_ends; [exact Ha| | |exact H]; lia).
Qed.
End ending.

(** An install ends.  If the clock advances from reading to reading (by a
    nanosecond at least), the nested reads of the device information stop
    within the query timeout and the observation of the reboot within the boot
    timeout, whatever the device answers: [rebootAndWait] returns a result. *)
Theorem install_ends info_fuel expected o fuel request l out :
  io_query_timeout o < Z.of_nat info_fuel -> io_boot_timeout o * 1000000 < Z.of_nat fuel ->
  StronglySorted Z.lt (readings l) ->
  runs (rebootAndWait info_fuel expected o fuel request) l out ->
  exists r request', out = Some (r, request').
Proof.
  intros Hq Hb [prev Ha]%sorted_advancing.
  intros [(_ & _ & ->)|[(e & _ & _ & ->)|(Hv & l' & -> & Hi)]]%rebootAndWait_run; [by eauto..|].
  unfold valid_options, valid_timeout in Hv. rewrite !andb_true_iff, !Z.gtb_lt in Hv.
  apply (advancing_app _ [_]), advancing_app_l in Ha.
  cut (exists x, out = Some x); [by intros [[r q] ->]; eauto|].
  unfold install in Hi. apply runs_bind in Hi as (l1 & l2 & got & -> & Hinfo & H).
  destruct (deviceInfo_ends info_fuel (io_query_timeout o) request prev l1 got) as [[info request1] ->];
    [by eapply advancing_app_l|lia|lia|exact Hinfo|]. apply advancing_app in Ha.
  destruct (fr_valid info); [|destruct H as [_ <-]; by eauto]. cbv zeta in H.
  do 4 (match type of H with runs (if ?b then _ else _) _ _ => destruct b end;
        [destruct H as [_ <-]; by eauto|]).
  step_call H known. destruct (negb _); [destruct H as [_ <-]; by eauto|]. step_call H reboot.
  apply (advancing_app _ [_; _]) in Ha. by eapply await_boot_ends; [| |exact Ha| |exact Hb|exact H]; lia.
Qed.

(** *** An environment

    A device of peer session 5 with version 0.0.7, which a reboot turns into
    session 6 with version 0.0.8; the clock advances by a millisecond per
    reading. *)

Definition new_version : Version := {| m_major := 0; m_minor := 0; m_patch := 8 |}.
Definition firmware_of (v : Version) : DeviceInfo := {|
  fi_protocol_version := sample_version; fi_firmware_version := v; fi_board_name := str "willow";
  fi_custom_name := str "left arm"; fi_serial_number := str "A1"; fi_firmware_type := kStandardArm;
  fi_command_capabilities := 0 |}.

Definition session_answer (R : Type) (c : session_call R) : Z * bool -> R * (Z * bool) :=
  match c in session_call R return Z * bool -> R * (Z * bool) with
  | Now => fun s => (fst s, (fst s + 1000000, snd s))
  | TryLock => fun s => (true, s)
  | PeerSession => fun s => (if snd s then 6 else 5, s)
  | SubmitDeviceInfo _ => fun s => ((kOk, 1), s)
  | WaitInfo _ _ => fun s => (tt, s)
  | TakeInfo _ => fun s => ((kOk, 0, firmware_of (if snd s then new_version else sample_version)), s)
  | BeginVerification => fun s => (UpdateError.kNone, s)
  | EndVerification => fun s => (tt, s)
  | Reboot _ _ _ => fun s => (reboot_result UpdateError.kNone, (fst s, true))
  | QueryBoot _ => fun s => ({|
      bs_error := UpdateError.kNone; bs_device_status := 0; bs_protocol_version := 1;
      bs_boot_state := BOOT_IDLE; bs_write_alignment := 8; bs_max_chunk_size := 256;
      bs_bytes_written := 0; bs_active_transfer_id := 0; bs_recovery_reason := 0;
      bs_active_slot := SLOT_PRIMARY; bs_confirmed_slot := SLOT_PRIMARY; bs_pending_slot := SLOT_NONE;
      bs_slot0_address := 0; bs_slot0_size := 1024; bs_slot1_address := 1024; bs_slot1_size := 1024 |}, s)
  | Sleep _ => fun s => (tt, s)
  end.

Definition sample_options (boot_timeout : Z) : FirmwareInstallOptions := {|
  io_query_timeout := 1; io_reboot_timeout := 1; io_boot_timeout := boot_timeout; io_poll_interval := 1 |}.

Definition sample_install (fuel : nat) (expected : Version) (boot_timeout : Z) :=
  interp session_answer (rebootAndWait 2 expected (sample_options boot_timeout) fuel 0) (0, false).

Definition confirmed_run := sample_install 3 new_version 100.
Definition confirmed_result : FirmwareInstallResult * Z :=
  match snd confirmed_run with Some r => r | None => (install0, 0) end.

Example install_runs :
  snd confirmed_run = Some confirmed_result /\
  ir_error (fst confirmed_result) = UpdateError.kNone /\
  ir_state (fst confirmed_result) = kTargetConfirmed /\
  count_calls is_reboot (fst confirmed_run) = 1%nat /\
  option_map (fun r => ir_error (fst r)) (snd (sample_install 3 sample_version 100)) =
    Some UpdateError.kInvalidArgument /\
  option_map (fun r => ir_error (fst r)) (snd (sample_install 3 new_version 1)) = Some UpdateError.kTimeout.
Proof. by vm_compute. Qed.

Lemma install_reboots_once_witness :
  (0 < length (fst confirmed_run))%nat /\ (count_calls is_reboot (fst confirmed_run) <= 1)%nat.
Proof.
  split; [vm_compute; lia|].
  exact (proj1 (install_reboots_once 2 new_version (sample_options 100) 3 0 (fst confirmed_run)
    (snd confirmed_run) (interp_runs session_answer _ (0, false)))).
Defined.

Lemma install_confirmed_witness :
  ir_state (fst confirmed_result) = kTargetConfirmed /\
  exists previous peer l1 l2,
    fst confirmed_run = l1 ++ Event (Reboot kTryBoot (io_reboot_timeout (sample_options 100)) true)
      (ir_reboot (fst confirmed_result)) :: l2 ++ [Event EndVerification tt] /\
    ir_previous_info (fst confirmed_result) = Some previous /\ installable new_version previous /\
    observed_in new_version previous peer (fst confirmed_result) l2.
Proof.
  split; [by vm_compute|].
  assert (runs (rebootAndWait 2 new_version (sample_options 100) 3 0) (fst confirmed_run)
    (Some (fst confirmed_result, snd confirmed_result))) as Hr.
  { assert (Some (fst confirmed_result, snd confirmed_result) = snd confirmed_run) as -> by by vm_compute.
    apply (interp_runs session_answer _ (0, false)). }
  assert (ir_error (fst confirmed_result) = UpdateError.kNone) as He by by vm_compute.
  exact (proj2 (install_confirmed 2 new_version (sample_options 100) 3 0 (fst confirmed_run)
    (fst confirmed_result) (snd confirmed_result) Hr) He).
Defined.

Lemma sample_readings fuel :
  readings (fst (sample_install (S fuel) new_version 1)) = [0; 1000000; 2000000].
Proof. by vm_compute. Qed.

Lemma install_ends_witness :
  exists r request', snd (sample_install (S (Z.to_nat 1000000)) new_version 1) = Some (r, request').
Proof.
  assert (StronglySorted Z.lt (readings (fst (sample_install (S (Z.to_nat 1000000)) new_version 1)))) as Hs.
  { rewrite sample_readings. repeat constructor. }
  assert (io_query_timeout (sample_options 1) < Z.of_nat 2) as Hq by done.
  assert (io_boot_timeout (sample_options 1) * 1000000 < Z.of_nat (S (Z.to_nat 1000000))) as Hb.
  { cbn [io_boot_timeout sample_options]. lia. }
  exact (install_ends 2 new_version (sample_options 1) (S (Z.to_nat 1000000)) 0 _ _ Hq Hb Hs
    (interp_runs session_answer _ (0, false))).
Defined.
