(* ===== verification/FirmwareUpdater.v ===== *)
(** * Connecting a firmware updater

    [src/FirmwareUpdater.cpp]: opening a management connection to a USB device
    by a URI, a selector or a descriptor, and the operations of an updater,
    which forward to the session of [UpdateSession.v] and the client of
    [UpgradeClient.v].  The calls are those of discovery and of a session, and
    the updater's own ones. *)

From Stdlib Require Import String.
From S2P Require Import Prelude UsbUri DeviceTypes Endpoint EndpointOps UpgradeClient Prog Discovery UpdateSession.

(** ** Data *)

Module ConnectionError.
Inductive FirmwareConnectionError :=
| kNone | kInvalidSelector | kEnumerationFailed | kDeviceNotFound | kAmbiguous | kPermissionDenied
| kBusy | kTransportError | kTimeout | kProtocolMismatch | kIdentityMismatch | kProbeFailed.
End ConnectionError.
Abbreviation FirmwareConnectionError := ConnectionError.FirmwareConnectionError.
#[global] Instance FirmwareConnectionError_eq_dec : EqDecision FirmwareConnectionError.
Proof. solve_decision. Defined.

(** [fc_updater]: [m_updater] is not null. *)
Record FirmwareConnectionResult := {
  fc_updater : bool;
  fc_error : FirmwareConnectionError;
  fc_probe_error : FirmwareUpdateError;
  fc_device_status : Z;
  fc_system_error : Z;
  fc_error_message : text;
  fc_device : option DeviceDescriptor;
  fc_candidates : list DeviceDescriptor
}.
Definition connection_failed (e : FirmwareConnectionError) (system : Z) (message : text)
    (candidates : list DeviceDescriptor) : FirmwareConnectionResult := {|
  fc_updater := false; fc_error := e; fc_probe_error := UpdateError.kNone; fc_device_status := 0;
  fc_system_error := system; fc_error_message := message; fc_device := None;
  fc_candidates := candidates |}.

(** [operator bool]. *)
Definition connected_ok (r : FirmwareConnectionResult) : bool :=
  bool_decide (fc_error r = ConnectionError.kNone) && fc_updater r.

(** ** Calls *)

Inductive updater_call : Type -> Type :=
| OnUsb {R} (c : discovery_call R) : updater_call R
| OnSession {R} (c : session_call R) : updater_call R
(* The constructors of the updater, its transport and its endpoint, and what
   they throw: a system error's code and text, or another exception's text. *)
| Construct (device : UsbBulkDeviceInfo) : updater_call (option (option Z * text))
| ConnectionInitialize : updater_call FciEndpointStatus
| ConnectionAttach : updater_call FciEndpointStatus
| ConnectionStart : updater_call FciEndpointStatus
| ConnectionLastError : updater_call Z
| ConnectionStop : updater_call unit  (* FirmwareUpdater::Impl::~Impl *)
(* the operations of an updater *)
| ArmRunning : updater_call bool
| ClientBootStatus (timeout : Z) : updater_call BootStatus
| ClientReboot (mode timeout : Z) : updater_call FirmwareRebootResult
| ClientStartUpload (image : bytes) (o : FirmwareUploadOptions) : updater_call FirmwareUpdateError
| ClientProgress : updater_call FirmwareUploadProgress
| ClientCancel : updater_call unit.

Definition on_usb {A} : prog discovery_call A -> prog updater_call A := lift (@OnUsb).
Definition on_session {A} : prog session_call A -> prog updater_call A := lift (@OnSession).

(** ** Connecting *)

Definition s_validTimeout (timeout : Z) : bool := (timeout >? 0) && (timeout <? 0x80000000).

Definition s_discoveryError (e : DeviceDiscoveryError) : FirmwareConnectionError :=
  match e with
  | DiscoveryError.kNone => ConnectionError.kNone
  | DiscoveryError.kInvalidSelector => ConnectionError.kInvalidSelector
  | DiscoveryError.kEnumerationFailed => ConnectionError.kEnumerationFailed
  | DiscoveryError.kDeviceNotFound => ConnectionError.kDeviceNotFound
  | DiscoveryError.kAmbiguous => ConnectionError.kAmbiguous
  | DiscoveryError.kTimeout => ConnectionError.kTimeout
  end.

Section connect.
Variable codes : usb_errors.
(** The fuel of [deviceInfo]. *)
Variable info_fuel : nat.

(** The device of the result, as far as it is known. *)
Definition unprobed (d : DeviceDescriptor) : DeviceDescriptor := {|
  dd_usb := dd_usb d; dd_device_info := None; dd_access := Access.kNotProbed;
  dd_compatibility := Compatibility.kUnknown; dd_system_error := 0; dd_error_message := [];
  dd_display_name := dd_display_name d |}.
Definition with_access (a : DeviceAccessStatus) (d : DeviceDescriptor) : DeviceDescriptor := {|
  dd_usb := dd_usb d; dd_device_info := dd_device_info d; dd_access := a;
  dd_compatibility := dd_compatibility d; dd_system_error := dd_system_error d;
  dd_error_message := dd_error_message d; dd_display_name := dd_display_name d |}.

(** [s_finish], for a connection with device [d]. *)
Definition connection_finish (updater : bool) (e : FirmwareConnectionError) (probe : FirmwareUpdateError)
    (status system : Z) (message : text) (d : DeviceDescriptor) : FirmwareConnectionResult := {|
  fc_updater := updater; fc_error := e; fc_probe_error := probe; fc_device_status := status;
  fc_system_error := system; fc_error_message := message;
  fc_device := Some {|
    dd_usb := dd_usb d; dd_device_info := dd_device_info d; dd_access := dd_access d;
    dd_compatibility :=
      if negb (bool_decide (e = ConnectionError.kNone)) &&
         bool_decide (dd_compatibility d = Compatibility.kUnknown)
      then Compatibility.kProbeFailed else dd_compatibility d;
    dd_system_error := system; dd_error_message := message; dd_display_name := dd_display_name d |};
  fc_candidates := [] |}.

(** The connection could not be opened. *)
Definition open_failure (system : Z) (d : DeviceDescriptor) : FirmwareConnectionResult :=
  let e :=
    if system =? PermissionDenied codes then ConnectionError.kPermissionDenied
    else if system =? InterfaceBusy codes then ConnectionError.kBusy
    else ConnectionError.kTransportError in
  let access :=
    match e with
    | ConnectionError.kPermissionDenied => Access.kPermissionDenied
    | ConnectionError.kBusy => Access.kBusy
    | _ => Access.kUnavailable
    end in
  connection_finish false e UpdateError.kNone 0 system
    (if system =? 0 then str "Wirelink endpoint initialization/start failed" else error_message codes system)
    (with_access access d).

(** The device answered with [info]. *)
Definition judge_connection (descriptor : DeviceDescriptor) (info : DeviceInfo) : FirmwareConnectionResult :=
  let device := dd_usb descriptor in
  let probed compatibility name := {|
    dd_usb := device; dd_device_info := Some info; dd_access := Access.kReady;
    dd_compatibility := compatibility; dd_system_error := 0; dd_error_message := [];
    dd_display_name := name |} in
  let usb_mismatch := negb (text_eqb (m_serial_number device) []) &&
    negb (text_eqb (m_serial_number device) (fi_serial_number info)) in
  if usb_mismatch ||
     match dd_device_info descriptor with
     | Some cached => negb (same_identity cached info)
     | None => false
     end
  then connection_finish false ConnectionError.kIdentityMismatch UpdateError.kNone 0 0
         (str "USB/discovered identity differs from connected firmware")
         (probed Compatibility.kIdentityMismatch (dd_display_name descriptor))
  else if negb (isProtocolVersionCompatible (fi_protocol_version info))
  then connection_finish false ConnectionError.kProtocolMismatch UpdateError.kNone 0 0
         (str "unsupported FCI protocol version")
         (probed Compatibility.kProtocolMismatch (dd_display_name descriptor))
  else connection_finish true ConnectionError.kNone UpdateError.kNone 0 0 []
         (probed Compatibility.kCompatible
           (if text_eqb (fi_custom_name info) [] then m_display_name device else fi_custom_name info)).

(** The three calls that open the endpoint, in the order of the [||]. *)
Definition open_endpoint : prog updater_call bool :=
  st ← call ConnectionInitialize;
  if negb (bool_decide (st = kOk)) then mret false
  else
    st ← call ConnectionAttach;
    if negb (bool_decide (st = kOk)) then mret false
    else st ← call ConnectionStart; mret (bool_decide (st = kOk)).

(** A result without the updater, which is destroyed. *)
Definition abandon (r : FirmwareConnectionResult) : prog updater_call (option FirmwareConnectionResult) :=
  _ ← call ConnectionStop; mret (Some r).

Definition connect_device (descriptor : DeviceDescriptor) (timeout : Z)
    : prog updater_call (option FirmwareConnectionResult) :=
  let device := dd_usb descriptor in
  if negb (s_validTimeout timeout) || (m_vendor_id device =? 0) || (m_product_id device =? 0) ||
     (text_eqb (m_serial_number device) [] && text_eqb (m_port_path device) [])
  then mret (Some (connection_failed ConnectionError.kInvalidSelector 0
         (str "descriptor requires VID/PID and an exact serial or port path; query timeout must be valid") []))
  else
    let d := unprobed descriptor in
    thrown ← call (Construct device);
    match thrown with
    | Some (code, what) =>
        mret (Some (connection_finish false ConnectionError.kTransportError UpdateError.kNone 0
          (default 0 code) what d))
    | None =>
        opened ← open_endpoint;
        if negb opened then
          system ← call ConnectionLastError;
          abandon (open_failure system d)
        else
          let d := with_access Access.kReady d in
          got ← on_session (deviceInfo info_fuel timeout 0);
          match got with
          | None => mret None
          | Some (info, _) =>
              match fr_valid info with
              | None =>
                  abandon (connection_finish false
                    (if decide (fr_error info = UpdateError.kTimeout) then ConnectionError.kTimeout
                     else ConnectionError.kProbeFailed)
                    (fr_error info) (fr_device_status info) 0
                    (str "same-session GetDeviceInfo probe failed") d)
              | Some i =>
                  let r := judge_connection descriptor i in
                  if fc_updater r then mret (Some r) else abandon r
              end
          end
    end.

(** The descriptor of a device that was only listed: the other members have
    their defaults. *)
Definition usb_descriptor (device : UsbBulkDeviceInfo) : DeviceDescriptor := {|
  dd_usb := device; dd_device_info := None; dd_access := Access.kNotProbed;
  dd_compatibility := Compatibility.kUnknown; dd_system_error := 0; dd_error_message := [];
  dd_display_name := [] |}.

(** [resolveUsbBulkDevice] lists the devices only for a well-formed URI. *)
Definition resolve (uri : text) : prog updater_call UsbBulkSelectionResult :=
  match s_parseSelector uri with
  | None => mret (resolveUsbBulkDevice uri (Ok []))
  | Some _ => listed ← on_usb (call EnumerateUsb); mret (resolveUsbBulkDevice uri listed)
  end.

Definition connect_uri (uri : text) (timeout : Z) : prog updater_call (option FirmwareConnectionResult) :=
  if negb (s_validTimeout timeout)
  then mret (Some (connection_failed ConnectionError.kInvalidSelector 0
         (str "query timeout must be in (0, 2^31) milliseconds") []))
  else
    selection ← resolve uri;
    match sr_error selection, sr_device selection with
    | UsbNone, Some device => connect_device (usb_descriptor device) timeout
    | e, _ =>
        let error :=
          match e with
          | InvalidUri => ConnectionError.kInvalidSelector
          | EnumerationFailed => ConnectionError.kEnumerationFailed
          | Ambiguous => ConnectionError.kAmbiguous
          | _ => ConnectionError.kDeviceNotFound
          end in
        mret (Some (connection_failed error (sr_system_error selection)
          (str (usbDiscoveryErrorMessage e)) []))
    end.

(** The connected device no longer matches. *)
Definition no_longer_matches (r : FirmwareConnectionResult) : FirmwareConnectionResult := {|
  fc_updater := false; fc_error := ConnectionError.kIdentityMismatch;
  fc_probe_error := fc_probe_error r; fc_device_status := fc_device_status r;
  fc_system_error := fc_system_error r;
  fc_error_message := str "connected device no longer matches selector";
  fc_device := fc_device r; fc_candidates := fc_candidates r |}.

Definition connect_selector (sel : DeviceSelector) (timeout : Z)
    : prog updater_call (option FirmwareConnectionResult) :=
  if negb (s_validTimeout timeout) || is_empty (ds_serial_number sel) || is_empty (ds_custom_name sel)
  then mret (Some (connection_failed ConnectionError.kInvalidSelector 0
         (str "invalid selector or query timeout") []))
  else
    found ← on_usb (discoverDevices codes {|
      do_probe := is_some (ds_custom_name sel) || is_some (ds_firmware_type sel);
      do_probe_timeout := timeout |});
    if negb (bool_decide (dr_error found = DiscoveryError.kNone))
    then mret (Some (connection_failed (s_discoveryError (dr_error found)) (dr_system_error found)
           (str (deviceDiscoveryErrorMessage (dr_error found))) []))
    else
      let selection := selectDevice (dr_devices found) sel in
      match (if selected selection then sl_device selection else None) with
      | None =>
          mret (Some (connection_failed (s_discoveryError (sl_error selection)) 0
            (str (deviceDiscoveryErrorMessage (sl_error selection))) (sl_candidates selection)))
      | Some d =>
          got ← connect_device d timeout;
          match got with
          | None => mret None
          | Some r =>
              if connected_ok r &&
                 negb (match fc_device r with Some d => selected (selectDevice [d] sel) | None => false end)
              then abandon (no_longer_matches r)
              else mret (Some r)
          end
      end.

(** [create]: the updater of a connection with the default timeout. *)
Definition create_updater (uri : text) : prog updater_call (option bool) :=
  r ← connect_uri uri 2000; mret (option_map fc_updater r).
End connect.

(** ** Operations

    An updater that was moved from, or made for no arm, has no client; one that
    shares the session of an arm refuses to upload or reboot while a control
    loop runs. *)
Inductive FirmwareUpdater := Detached | Standalone | Shared.

Definition upload_allowed (u : FirmwareUpdater) : prog updater_call bool :=
  match u with
  | Shared => running ← call ArmRunning; mret (negb running)
  | Detached | Standalone => mret true
  end.

(** An operation that needs the client or the session. *)
Definition with_client {A} (u : FirmwareUpdater) (none : A) (p : prog updater_call A) : prog updater_call A :=
  match u with Detached => mret none | Standalone | Shared => p end.

Definition updater_deviceInfo (fuel : nat) (timeout request : Z) (u : FirmwareUpdater)
    : prog updater_call (option (FirmwareDeviceInfoResult * Z)) :=
  with_client u (Some (info_error UpdateError.kNotConnected, request))
    (on_session (deviceInfo fuel timeout request)).
Definition updater_rebootAndWait (info_fuel fuel : nat) (expected : Version) (o : FirmwareInstallOptions)
    (request : Z) (u : FirmwareUpdater) : prog updater_call (option (FirmwareInstallResult * Z)) :=
  allowed ← upload_allowed u;
  if negb allowed then mret (Some (ir_with_error UpdateError.kBusy install0, request))
  else with_client u (Some (ir_with_error UpdateError.kNotConnected install0, request))
         (on_session (rebootAndWait info_fuel expected o fuel request)).
Definition updater_bootStatus (timeout : Z) (u : FirmwareUpdater) : prog updater_call BootStatus :=
  with_client u (boot_failed UpdateError.kNotConnected 0) (call (ClientBootStatus timeout)).
Definition updater_reboot (mode timeout : Z) (u : FirmwareUpdater) : prog updater_call FirmwareRebootResult :=
  allowed ← upload_allowed u;
  if negb allowed then mret (reboot_result UpdateError.kBusy)
  else with_client u (reboot_result UpdateError.kNotConnected) (call (ClientReboot mode timeout)).
Definition updater_startUpload (image : bytes) (o : FirmwareUploadOptions) (u : FirmwareUpdater)
    : prog updater_call FirmwareUpdateError :=
  allowed ← upload_allowed u;
  if negb allowed then mret UpdateError.kBusy
  else with_client u UpdateError.kNotConnected (call (ClientStartUpload image o)).
Definition updater_progress (u : FirmwareUpdater) : prog updater_call FirmwareUploadProgress :=
  with_client u {|
    fp_state := UploadState.kFailed; fp_error := UpdateError.kNotConnected; fp_device_status := 0;
    fp_total_bytes := 0; fp_acknowledged_bytes := 0; fp_transfer_id := 0; fp_retries := 0;
    fp_busy_responses := 0 |} (call ClientProgress).
Definition updater_cancel (u : FirmwareUpdater) : prog updater_call unit :=
  with_client u tt (call ClientCancel).

(** ** Theorems *)

Definition constructs (ev : event updater_call) : bool :=
  match ev with Event c r => match c in updater_call R return R -> bool with
    | Construct _ => fun r => bool_decide (r = None) | _ => fun _ => false end r end.
Definition stops (ev : event updater_call) : bool :=
  match ev with Event c _ => match c with ConnectionStop => true | _ => false end end.

(** The endpoints that were made and are still alive. *)
Definition alive (l : list (event updater_call)) : Z :=
  Z.of_nat (count_calls constructs l) - Z.of_nat (count_calls stops l).

Lemma alive_app l1 l2 : alive (l1 ++ l2) = alive l1 + alive l2.
Proof. unfold alive. rewrite !count_calls_app. lia. Qed.

Lemma on_usb_alive {A} (p : prog discovery_call A) l a : runs (on_usb p) l a -> alive l = 0.
Proof.
  intros (l' & -> & _)%lift_runs. unfold alive. rewrite !count_calls_none; [done|..];
    apply Forall_map, List.Forall_forall; by intros [R c r] _.
Qed.
Lemma on_session_alive {A} (p : prog session_call A) l a : runs (on_session p) l a -> alive l = 0.
Proof.
  intros (l' & -> & _)%lift_runs. unfold alive. rewrite !count_calls_none; [done|..];
    apply Forall_map, List.Forall_forall; by intros [R c r] _.
Qed.

(** The device told who it is over the connection that the updater has. *)
Definition opened_and_read (usb : UsbBulkDeviceInfo) (info : DeviceInfo) (l : list (event updater_call)) : Prop :=
  exists l1 l2 peer,
    l = l1 ++ [Event (Construct usb) None; Event ConnectionInitialize kOk; Event ConnectionAttach kOk;
               Event ConnectionStart kOk] ++ map (lift_event (@OnSession)) l2 /\
    read_in_session peer info l2.

(** A connection to the device of [descriptor] that may be kept. *)
Record good_connection (descriptor d : DeviceDescriptor) (info : DeviceInfo) : Prop := {
  gc_info : dd_device_info d = Some info;
  gc_usb : dd_usb d = dd_usb descriptor;
  gc_compatible : dd_compatibility d = Compatibility.kCompatible;
  gc_access : dd_access d = Access.kReady;
  gc_version : isProtocolVersionCompatible (fi_protocol_version info) = true;
  gc_serial : m_serial_number (dd_usb d) = [] \/ m_serial_number (dd_usb d) = fi_serial_number info;
  gc_cached : forall cached, dd_device_info descriptor = Some cached -> same_identity cached info = true
}.

Section theorems.
Variables (codes : usb_errors) (info_fuel : nat).

Lemma finish_error e probe status system message d :
  e <> ConnectionError.kNone ->
  let r := connection_finish false e probe status system message d in
  fc_updater r = false /\ fc_error r <> ConnectionError.kNone.
Proof. done. Qed.

Lemma open_failure_error system d :
  fc_updater (open_failure codes system d) = false /\
  fc_error (open_failure codes system d) <> ConnectionError.kNone.
Proof. unfold open_failure. destruct (_ =? _); [done|]. by destruct (_ =? _). Qed.

Lemma judge_connection_spec descriptor info :
  let r := judge_connection descriptor info in
  (fc_updater r = true <-> fc_error r = ConnectionError.kNone) /\
  (fc_updater r = true -> exists d, fc_device r = Some d /\ good_connection descriptor d info).
Proof.
  cbv zeta. unfold judge_connection. destruct (_ || _) eqn:Hid; [done|].
  destruct (isProtocolVersionCompatible _) eqn:Hv; cbn [negb]; [|done].
  apply orb_false_iff in Hid as [Hser Hcached]. split; [done|]. intros _. eexists. split; [reflexivity|].
  constructor; cbn; try done.
  - apply andb_false_iff in Hser as [Hs|Hs]; apply negb_false_iff, bool_decide_eq_true in Hs; auto.
  - intros cached E. rewrite E in Hcached. by apply negb_false_iff in Hcached.
Qed.

Lemma abandon_inv r l o : runs (abandon r) l o -> o = Some r /\ alive l = -1.
Proof. unfold abandon. intros H. step_call H u. by destruct H as [-> <-]. Qed.

Lemma open_endpoint_inv l b :
  runs open_endpoint l b ->
  alive l = 0 /\
  (b = true -> l = [Event ConnectionInitialize kOk; Event ConnectionAttach kOk; Event ConnectionStart kOk]).
Proof.
  unfold open_endpoint. intros H. step_call H st. on_status H st; [|by destruct H as [-> <-]].
  step_call H st. on_status H st; [|by destruct H as [-> <-]].
  step_call H st. destruct H as [-> <-]. split; [done|]. by intros ->%bool_decide_eq_true.
Qed.

(** What a connection to a descriptor's device comes to. *)
Lemma connect_device_run descriptor timeout l r :
  runs (connect_device codes info_fuel descriptor timeout) l (Some r) ->
  (fc_updater r = true <-> fc_error r = ConnectionError.kNone) /\
  alive l = Z.b2z (fc_updater r) /\
  (fc_updater r = true -> exists d info, fc_device r = Some d /\ good_connection descriptor d info /\
     opened_and_read (dd_usb descriptor) info l).
Proof.
  unfold connect_device. destruct (_ || _); [by intros [-> [= <-]]|].
  intros H. step_call H thrown. destruct thrown as [[code what]|]; [by destruct H as [-> [= <-]]|].
  apply runs_bind in H as (l1 & l2 & opened & -> & [Hl1 Ho]%open_endpoint_inv & H).
  assert (forall k, alive (Event (Construct (dd_usb descriptor)) None :: l1 ++ k) = 1 + alive k) as Ha.
  { intros k. change (Event (Construct (dd_usb descriptor)) None :: l1 ++ k)
      with ([Event (Construct (dd_usb descriptor)) None] ++ (l1 ++ k)). rewrite !alive_app, Hl1. done. }
  rewrite Ha. destruct opened; cbn [negb] in H.
  2:{ step_call H system. apply abandon_inv in H as [[= ->] Hl].
      change (Event ConnectionLastError system :: l) with ([Event ConnectionLastError system] ++ l).
      rewrite alive_app, Hl. destruct (open_failure_error system (unprobed descriptor)) as [He Hne]. rewrite He.
      split; [|by split]. split; [done|]. by intros ?%Hne. }
  rewrite Ho by done.
  apply runs_bind in H as (l3 & l4 & got & -> & Hs & H).
  pose proof (on_session_alive _ _ _ Hs) as Hl3. rewrite alive_app, Hl3.
  apply lift_runs in Hs as (ls & -> & Hs).
  destruct got as [[info request]|]; [|by destruct H]. destruct (fr_valid info) as [i|] eqn:Hv.
  2:{ apply abandon_inv in H as [[= ->] ->]. split; [|by split]. split; [done|]. cbn.
      by destruct (decide (fr_error info = UpdateError.kTimeout)). }
  destruct (judge_connection_spec descriptor i) as [Hiff Hgood].
  destruct (fc_updater (judge_connection descriptor i)) eqn:Hu.
  - destruct H as [-> [= <-]]. rewrite Hu. split; [done|]. split; [done|]. intros _.
    destruct (Hgood eq_refl) as (d & Hd & Hg). exists d, i. split; [done|]. split; [done|].
    exists [], ls, (fr_peer_session info). rewrite app_nil_r. split; [done|].
    by apply (deviceInfo_read _ _ _ _ _ _ _ Hs).
  - apply abandon_inv in H as [[= ->] ->]. rewrite Hu. by split_and!.
Qed.

(** An updater is handed out only for the device that was asked for.
    When [connect] with a selector returns an updater (and that is exactly
    when it reports no error), the device told who it is over the connection
    the updater keeps, with a supported protocol version; its serial number is
    the USB one, if there is one, its identity is the one seen at discovery, if
    it was probed, and it matches the selector now.  Whatever the outcome,
    every endpoint that was opened has been stopped, but the updater's own. *)
Theorem connect_truthful sel timeout l r :
  runs (connect_selector codes info_fuel sel timeout) l (Some r) ->
  (fc_updater r = true <-> fc_error r = ConnectionError.kNone) /\
  alive l = Z.b2z (fc_updater r) /\
  (fc_updater r = true -> exists listed d info,
     fc_device r = Some d /\ good_connection listed d info /\ matches listed sel /\ matches d sel /\
     opened_and_read (dd_usb listed) info l).
Proof.
  unfold connect_selector. destruct (_ || _) eqn:Hargs; [by intros [-> [= <-]]|].
  intros (l1 & l2 & found & -> & Hl1%on_usb_alive & H)%runs_bind. rewrite alive_app, Hl1.
  destruct (bool_decide (dr_error found = _)) eqn:Hf; cbn [negb] in H.
  2:{ destruct H as [-> [= <-]]. split_and!; try done. cbn. split; [done|].
      apply bool_decide_eq_false in Hf. by destruct (dr_error found). }
  destruct (selectDevice_spec (dr_devices found) sel) as (Hsel & Hok & _).
  destruct (if selected _ then _ else _) as [listed|] eqn:Hd.
  2:{ destruct H as [-> [= <-]]. split_and!; try done. cbn. split; [done|]. intros He. exfalso.
      unfold selected in Hd. clear -He Hd. unfold selectDevice in *.
      destruct (_ || _); [done|]. by destruct (collect _ _ _) as [|x [|y k]]. }
  assert (matches listed sel) as Hm.
  { destruct (selected _); [|done]. by apply Hsel in Hd as (_ & k1 & k2 & _ & Hm & _). }
  apply runs_bind in H as (l3 & l4 & got & -> & Hc & H). destruct got as [c|]; [|by destruct H].
  apply connect_device_run in Hc as (Hiff & Ha & Hgood). rewrite alive_app, Ha.
  destruct (connected_ok c && _) eqn:Hre.
  - apply andb_true_iff in Hre as [Hconn _]. apply andb_true_iff in Hconn as [_ Hu].
    apply abandon_inv in H as [[= ->] ->]. rewrite Hu. by split_and!.
  - destruct H as [-> [= <-]]. split; [done|]. split; [change (alive []) with 0; lia|]. intros Hu.
    destruct (Hgood Hu) as (d & info & Hdev & Hg & k1 & k2 & peer & -> & Hread).
    exists listed, d, info. split; [done|]. split; [done|]. split; [done|]. split.
    + apply andb_false_iff in Hre as [Hno|Hno].
      { unfold connected_ok in Hno. rewrite Hu, (proj1 Hiff Hu) in Hno. done. }
      rewrite Hdev in Hno. apply negb_false_iff in Hno.
      destruct (selectDevice_spec [d] sel) as (Hsel1 & Hok1 & _).
      apply Hok1 in Hno. destruct (sl_device (selectDevice [d] sel)) as [x|]; [|done].
      destruct (proj1 (Hsel1 x) eq_refl) as (_ & [|? [|? ?]] & [|? ?] & Heq & Hmx & _); try done. by injection Heq as ->.
    + exists (l1 ++ k1), k2, peer. rewrite app_nil_r. rewrite <- (app_assoc l1). by split.
Qed.
End theorems.

(** ** Concrete runs

    One device on the bus; it can be renamed between discovery and the
    connection, and its USB interface can be taken. *)
Record updater_world := { uw_attach : FciEndpointStatus; uw_name : text }.

Definition sample_updater_answer (w : updater_world) (R : Type) (c : updater_call R) : Z -> R * Z :=
  match c in updater_call R return Z -> R * Z with
  | OnUsb c => sample_answer _ c
  | OnSession c =>
      match c in session_call R return Z -> R * Z with
      | Now => fun now => (now, now + 1000000)
      | TryLock => fun now => (true, now)
      | PeerSession => fun now => (5, now)
      | SubmitDeviceInfo _ => fun now => ((kOk, 1), now)
      | TakeInfo _ => fun now => ((kOk, 0, sample_firmware (uw_name w)), now)
      | c => fun now => (fst (session_answer _ c (now, false)), now)
      end
  | Construct _ => fun now => (None, now)
  | ConnectionInitialize | ConnectionStart => fun now => (kOk, now)
  | ConnectionAttach => fun now => (uw_attach w, now)
  | ConnectionLastError => fun now => (InterfaceBusy sample_codes, now)
  | ConnectionStop | ClientCancel => fun now => (tt, now)
  | ArmRunning => fun now => (true, now)
  | ClientBootStatus _ => fun now => (boot_failed UpdateError.kTimeout 0, now)
  | ClientReboot _ _ => fun now => (reboot_result UpdateError.kNone, now)
  | ClientStartUpload _ _ => fun now => (UpdateError.kNone, now)
  | ClientProgress => fun now => (progress_of UploadState.kIdle 0, now)
  end.

Definition left_arm : DeviceSelector := byCustomName (str "left arm").
Definition connect_run (w : updater_world) :=
  interp (sample_updater_answer w) (connect_selector sample_codes 2 left_arm 1500) 0.
Definition connected_run := connect_run {| uw_attach := kOk; uw_name := str "left arm" |}.
Definition connected_result : FirmwareConnectionResult :=
  default (connection_failed ConnectionError.kTimeout 0 [] []) (snd connected_run).

Example connect_runs :
  snd connected_run = Some connected_result /\ connected_ok connected_result = true /\
  option_map fc_error (snd (connect_run {| uw_attach := kLinkError; uw_name := str "left arm" |})) =
    Some ConnectionError.kBusy /\
  option_map fc_error (snd (connect_run {| uw_attach := kOk; uw_name := str "right arm" |})) =
    Some ConnectionError.kIdentityMismatch /\
  alive (fst (connect_run {| uw_attach := kOk; uw_name := str "right arm" |})) = 0 /\
  snd (interp (sample_updater_answer {| uw_attach := kOk; uw_name := [] |})
    (updater_reboot kTryBoot 1000 Shared) 0) = reboot_result UpdateError.kBusy.
Proof. by vm_compute. Qed.

Lemma connect_truthful_witness :
  fc_updater connected_result = true /\
  exists listed d info, fc_device connected_result = Some d /\ good_connection listed d info /\
    matches d left_arm /\ opened_and_read (dd_usb listed) info (fst connected_run).
Proof.
  assert (fc_updater connected_result = true) as Hu by (vm_compute; reflexivity). split; [exact Hu|].
  assert (runs (connect_selector sample_codes 2 left_arm 1500) (fst connected_run) (Some connected_result)) as Hr.
  { assert (Some connected_result = snd connected_run) as -> by (vm_compute; reflexivity).
    apply (interp_runs (sample_updater_answer {| uw_attach := kOk; uw_name := str "left arm" |}) _ 0). }
  destruct (proj2 (proj2 (connect_truthful sample_codes 2 left_arm 1500 (fst connected_run) connected_result Hr)) Hu)
    as (listed & d & info & Hd & Hg & _ & Hm & Ho).
  exists listed, d, info. split; [exact Hd|]. split; [exact Hg|]. split; [exact Hm|exact Ho].
Defined.
