(* ===== verification/ArmImpl.v ===== *)
(** * The arm: its lifecycle and its remote operations

    [src/ArmImpl.cpp] and [include/florid/detail/ArmImpl.hpp], in the default
    build (without MPC): connecting and disconnecting, waiting for the arm,
    modes, homing, settings, motor registers and the preparation of a control
    session.  A member function is a program ([Prog.v]) over the private state
    of the class that may throw; it calls the endpoint, the transport and the
    clock.  What several threads touch without a lock of their own
    ([m_running], [m_stop_flag], the control generation, the wake-up semaphore)
    is behind calls too, so that any interleaving is among their answers. *)

From Stdlib Require Import String.
From stdpp Require Import strings pretty.
From S2P Require Import Prelude DeviceTypes UsbUri Endpoint EndpointOps EndpointInv EndpointProps EndpointCalls Commands Prog Discovery.

Open Scope string_scope.
Open Scope Z_scope.
Open Scope list_scope.

(** ** Data *)

Module TransportState.
Inductive TransportConnectionState := kUnknown | kConnected | kDisconnected | kReconnecting | kClosed.
End TransportState.
Abbreviation TransportConnectionState := TransportState.TransportConnectionState.

Module ArmConnection.
Inductive ArmConnectionState := kReady | kDisconnected | kReconnecting | kControlUnavailable | kClosed.
End ArmConnection.
Abbreviation ArmConnectionState := ArmConnection.ArmConnectionState.
#[global] Instance ArmConnectionState_eq_dec : EqDecision ArmConnectionState.
Proof. solve_decision. Defined.

(** The exceptions of [Exceptions.hpp]; [CallbackException] is whatever a
    user's callback throws. *)
Inductive exception :=
| NetworkException (what : string) (error : Z)
| ProtocolException (what : string)
| IncompatibleVersionException (what : string)
| ControlException (what : string)
| CommandException (what : string)
| CallbackException.

(** The command types a control session is made for. *)
Inductive CommandType := TJointMIT | TJointPosVel | TJointVel | TJointPVT | TCartesianPose | TCartesianVelocities.
#[global] Instance CommandType_eq_dec : EqDecision CommandType.
Proof. solve_decision. Defined.

Inductive UserCommand :=
| UJointMIT (c : JointMIT) | UJointPosVel (c : JointPosVel) | UJointVel (c : JointVel)
| UJointPVT (c : JointPVT) | UCartesianPose (c : CartesianPose)
| UCartesianVelocities (c : CartesianVelocities).

(** [m_device_info], [m_device_settings], [m_fw_dt_us], [m_current_mode] and
    [m_current_gripper_mode]. *)
Record ArmImpl := {
  m_device_info : DeviceInfo;
  m_arm_settings : DeviceSettings;
  m_fw_dt_us : Z;
  m_current_mode : option Z;
  m_current_gripper_mode : option Z
}.
Definition info0 : DeviceInfo := {|
  fi_protocol_version := {| m_major := 0; m_minor := 0; m_patch := 0 |};
  fi_firmware_version := {| m_major := 0; m_minor := 0; m_patch := 0 |};
  fi_board_name := []; fi_custom_name := []; fi_serial_number := [];
  fi_firmware_type := kUnknownFirmware; fi_command_capabilities := 0 |}.
Definition arm0 : ArmImpl := {|
  m_device_info := info0; m_arm_settings := settings0; m_fw_dt_us := 2000;
  m_current_mode := None; m_current_gripper_mode := None |}.

Definition arm_with_info (i : DeviceInfo) (s : ArmImpl) : ArmImpl := {|
  m_device_info := i; m_arm_settings := m_arm_settings s; m_fw_dt_us := m_fw_dt_us s;
  m_current_mode := m_current_mode s; m_current_gripper_mode := m_current_gripper_mode s |}.
Definition arm_with_settings (d : DeviceSettings) (s : ArmImpl) : ArmImpl := {|
  m_device_info := m_device_info s; m_arm_settings := d; m_fw_dt_us := m_firmware_period_us d;
  m_current_mode := m_current_mode s; m_current_gripper_mode := m_current_gripper_mode s |}.
Definition arm_with_mode (m : Z) (s : ArmImpl) : ArmImpl := {|
  m_device_info := m_device_info s; m_arm_settings := m_arm_settings s; m_fw_dt_us := m_fw_dt_us s;
  m_current_mode := Some m; m_current_gripper_mode := m_current_gripper_mode s |}.
Definition arm_with_gripper_mode (m : Z) (s : ArmImpl) : ArmImpl := {|
  m_device_info := m_device_info s; m_arm_settings := m_arm_settings s; m_fw_dt_us := m_fw_dt_us s;
  m_current_mode := m_current_mode s; m_current_gripper_mode := Some m |}.

(** ** Calls *)

Inductive arm_call : Type -> Type :=
(* the endpoint *)
| EpInitialize : arm_call FciEndpointStatus
| EpAttachDirectTransport : arm_call FciEndpointStatus
| EpSetSink : arm_call FciEndpointStatus
| EpSetCallbacks : arm_call FciEndpointStatus
| EpStart : arm_call FciEndpointStatus
| EpStop : arm_call unit
| EpSubmit (c : PublicCall) : arm_call FciSubmitResult
| EpWait (id wait_ms : Z) : arm_call (FciEndpointStatus * option FciOperationResult)
| EpTake (id : Z) : arm_call (FciEndpointStatus * option FciOperationResult)
| EpTakeDeviceInfo (id : Z) : arm_call (FciEndpointStatus * option FciOperationResult * option DeviceInfo)
| EpTakeDeviceSettings (id : Z)
    : arm_call (FciEndpointStatus * option FciOperationResult * option DeviceSettings)
| EpTakeMotorRegister (id : Z) : arm_call (FciEndpointStatus * option FciOperationResult * option Z)
| EpControlLease : arm_call FciControlLeaseSnapshot
| EpSend (c : Command) (timestamp_us : Z) : arm_call FciEndpointStatus
(* the transport *)
| TrSetReceiveCallback (installed : bool) : arm_call unit
| TrLastError : arm_call Z
| TrConnectionState : arm_call TransportConnectionState
(* the clock *)
| ClockNs : arm_call Z
| NowUs : arm_call Z
| SleepMs (ms : Z) : arm_call unit
(* shared memory *)
| StoreRunning (b : bool) : arm_call unit
| LoadRunning : arm_call bool
| StoreStop (b : bool) : arm_call unit
| LoadStop : arm_call bool
| SignalWake : arm_call unit        (* exchange m_state_wake_pending, release m_data_ready *)
| ClearWake : arm_call unit
| TryAcquire : arm_call bool        (* m_data_ready.try_acquire_for(10ms) *)
| Acquire : arm_call unit
| AdvanceGeneration : arm_call unit (* ControlGeneration::invalidate, up to its loop *)
| DrainSends : arm_call unit        (* its loop: no submission is inside the gate *)
| CurrentGeneration : arm_call Z
| GateEnter (g : Z) : arm_call bool (* ControlGeneration::send got to its body *)
| GateLeave : arm_call unit
| TakeLatestState : arm_call (option ArmState)
(* the user *)
| Callback (s : ArmState) : arm_call (option (UserCommand * bool)).

(** ** State and exceptions *)

Definition arm (A : Type) : Type := ArmImpl -> prog arm_call (ArmImpl * (exception + A)).

#[export] Instance arm_ret : MRet arm := fun A a s => mret (s, inr a).
#[export] Instance arm_bind : MBind arm := fun A B f p s =>
  out ← p s; match snd out with inl e => mret (fst out, inl e) | inr a => f a (fst out) end.

Definition throw {A} (e : exception) : arm A := fun s => mret (s, inl e).
Definition ask {R} (c : arm_call R) : arm R := fun s => r ← call c; mret (s, inr r).
Definition gets {A} (f : ArmImpl -> A) : arm A := fun s => mret (s, inr (f s)).
Definition modify (f : ArmImpl -> ArmImpl) : arm unit := fun s => mret (f s, inr tt).
Definition try_catch {A} (p : arm A) (handler : exception -> arm A) : arm A := fun s =>
  out ← p s; match snd out with inl e => handler e (fst out) | inr a => mret (fst out, inr a) end.

(** ** Errors *)

Definition status_number (st : FciEndpointStatus) : Z :=
  match st with
  | kOk => 0 | kNotReady => 1 | kQueueFull => 2 | kBusy => 3 | kInvalidArgument => 4
  | kUnsupported => 5 | kNoLease => 6 | kNoData => 7 | kCodecError => 8 | kLinkError => 9
  | kTimeout => 10 | kCancelled => 11 | kDomainErrorStatus => 12 | kInternalError => 13
  end.

Definition s_operationError (operation : string) (st : FciEndpointStatus)
    (result : option FciOperationResult) : string :=
  (operation +:+ " failed (endpoint=" +:+ pretty (status_number st) +:+
   match result with
   | None => ""
   | Some r => ", domain=" +:+ pretty (res_domain_status r) +:+ ", link=" +:+ pretty (res_link_status r)
   end +:+ ")")%string.

(** A default [FciOperationResult], which the calls may leave as it is. *)
Definition result0 : FciOperationResult := {|
  res_request_id := 0; res_state := Endpoint.kUnknown; res_status := kNoData;
  res_domain_status := 0; res_link_status := 0 |}.

(** ** Waiting for operations *)

Definition s_kLeaseDurationMs : Z := 2000.
Definition s_kHomeLeaseDurationMs : Z := 15000.
Definition s_kDefaultRpcTimeoutMs : Z := 500.

Definition s_requireOperation (submit : FciSubmitResult) (wait : Z) (operation : string) : arm unit :=
  if negb (bool_decide (fst submit = kOk))
  then throw (CommandException (s_operationError operation (fst submit) None))
  else
    waited ← ask (EpWait (snd submit) wait);
    let result := default result0 (snd waited) in
    if decide (fst waited = kBusy)
    then throw (CommandException (s_operationError operation (fst waited) (Some result)))
    else
      taken ← ask (EpTake (snd submit));
      if negb (bool_decide (fst taken = kOk))
      then throw (CommandException (s_operationError operation (fst taken)
             (Some (default result (snd taken)))))
      else mret tt.

Definition s_operationSucceeded (submit : FciSubmitResult) (wait : Z) : arm bool :=
  if negb (bool_decide (fst submit = kOk)) then mret false
  else
    waited ← ask (EpWait (snd submit) wait);
    if decide (fst waited = kBusy) then mret false
    else
      taken ← ask (EpTake (snd submit));
      mret (bool_decide (fst taken = kOk)).

Definition s_requireCommand (st : FciEndpointStatus) (operation : string) : arm unit :=
  if negb (bool_decide (st = kOk)) then throw (CommandException (s_operationError operation st None))
  else mret tt.

(** A call of the endpoint whose result is required, or only wanted. *)
Definition require (c : PublicCall) (wait : Z) (operation : string) : arm unit :=
  submit ← ask (EpSubmit c); s_requireOperation submit wait operation.
Definition succeeded (c : PublicCall) (wait : Z) : arm bool :=
  submit ← ask (EpSubmit c); s_operationSucceeded submit wait.

(** ** Information, settings and names *)

Definition s_fetchDeviceInfo : arm unit :=
  submit ← ask (EpSubmit (CallGetDeviceInfo 1000));
  if negb (bool_decide (fst submit = kOk))
  then throw (ProtocolException (s_operationError "GetDeviceInfo submit" (fst submit) None))
  else
    waited ← ask (EpWait (snd submit) 1500);
    taken ← ask (EpTakeDeviceInfo (snd submit));
    let '(st, result, info) := taken in
    if negb (bool_decide (fst waited = kOk)) || negb (bool_decide (st = kOk))
    then throw (ProtocolException (s_operationError "GetDeviceInfo" st
           (Some (default (default result0 (snd waited)) result))))
    else modify (arm_with_info (default info0 info)).

Definition s_fetchDeviceSettings : arm unit :=
  submit ← ask (EpSubmit (CallGetDeviceSettings 1000));
  if negb (bool_decide (fst submit = kOk))
  then throw (ProtocolException (s_operationError "GetDeviceSettings submit" (fst submit) None))
  else
    waited ← ask (EpWait (snd submit) 1500);
    taken ← ask (EpTakeDeviceSettings (snd submit));
    let '(st, result, settings) := taken in
    if negb (bool_decide (fst waited = kOk)) || negb (bool_decide (st = kOk))
    then throw (ProtocolException (s_operationError "GetDeviceSettings" st
           (Some (default (default result0 (snd waited)) result))))
    else modify (arm_with_settings (default settings0 settings)).

Definition arm_setDeviceSettings (settings : DeviceSettings) : arm bool :=
  submit ← ask (EpSubmit (CallSetDeviceSettings settings s_kDefaultRpcTimeoutMs));
  if negb (bool_decide (fst submit = kOk)) then mret false
  else
    waited ← ask (EpWait (snd submit) 750);
    taken ← ask (EpTakeDeviceSettings (snd submit));
    let '(st, result, effective) := taken in
    if negb (bool_decide (fst waited = kOk)) || negb (bool_decide (st = kOk)) then mret false
    else _ ← modify (arm_with_settings (default settings0 effective)); mret true.

Definition setCustomName (name : bytes) : arm bool :=
  ok ← succeeded (CallSetDeviceInfo name s_kDefaultRpcTimeoutMs) 750;
  if negb ok then mret false
  else try_catch (_ ← s_fetchDeviceInfo; mret true) (fun _ => mret false).

(** ** Connection *)

Definition lease_ready (l : FciControlLeaseSnapshot) : ArmConnectionState :=
  match l_state l with
  | kHeld | kRenewQueued | kRenewing => ArmConnection.kReady
  | _ => ArmConnection.kControlUnavailable
  end.

(** [m_transport] is never null: the constructor throws. *)
Definition connectionState : arm ArmConnectionState :=
  transport ← ask TrConnectionState;
  match transport with
  | TransportState.kDisconnected => mret ArmConnection.kDisconnected
  | TransportState.kReconnecting => mret ArmConnection.kReconnecting
  | TransportState.kClosed => mret ArmConnection.kClosed
  | TransportState.kConnected | TransportState.kUnknown =>
      lease ← ask EpControlLease; mret (lease_ready lease)
  end.

Definition is_ready : arm bool :=
  st ← connectionState; mret (bool_decide (st = ArmConnection.kReady)).

(** The loop of [waitUntilReady]; [None] when the fuel is used up. *)
Fixpoint wait_ready (fuel : nat) (deadline : Z) : arm (option bool) :=
  match fuel with
  | O => mret None
  | S fuel' =>
      st ← connectionState;
      if decide (st = ArmConnection.kReady) then mret (Some true)
      else if decide (st = ArmConnection.kClosed) then mret (Some false)
      else
        now ← ask ClockNs;
        if now >=? deadline then ready ← is_ready; mret (Some ready)
        else
          acquired ←
            (if decide (st = ArmConnection.kControlUnavailable)
             then succeeded (CallAcquireControlLease s_kLeaseDurationMs s_kDefaultRpcTimeoutMs)
                    (Z.min (to_ms (deadline - now)) 750)
             else mret false);
          if acquired : bool then mret (Some true)
          else
            after ← ask ClockNs;
            if after >=? deadline then ready ← is_ready; mret (Some ready)
            else
              _ ← ask (SleepMs (Z.min 50 (to_ms (deadline - after))));
              wait_ready fuel' deadline
  end.

Definition waitUntilReady (fuel : nat) (timeout : Z) : arm (option bool) :=
  if timeout <? 0 then mret (Some false)
  else
    start ← ask ClockNs;
    wait_ready fuel (start + timeout * 1000000).

(** ** Stopping and modes *)

Definition kPc : Z := 0.
Definition kDrag : Z := 1.
Definition kDamp : Z := 2.
Definition kMit : Z := 1.
Definition kPositionVelocity : Z := 2.
Definition kVelocity : Z := 3.
Definition kPvt : Z := 4.

Definition s_stopControlLocked : arm unit :=
  _ ← ask (StoreStop true);
  _ ← ask (StoreRunning false);
  _ ← ask SignalWake;
  _ ← ask AdvanceGeneration;
  ask DrainSends.

Definition arm_stop : arm unit := s_stopControlLocked.

Definition s_requestPcMode : arm unit :=
  require (CallSetArmMode kPc s_kDefaultRpcTimeoutMs) 750 "SetArmMode(Pc)".

Definition s_ensureMode (mode : Z) : arm unit :=
  current ← gets m_current_mode;
  if decide (current = Some mode) then mret tt
  else
    _ ← require (CallSetArmControlMode mode s_kDefaultRpcTimeoutMs) 750 "SetArmControlMode";
    modify (arm_with_mode mode).

Definition s_ensureGripperMode (mode : Z) : arm unit :=
  current ← gets m_current_gripper_mode;
  if decide (current = Some mode) then mret tt
  else
    _ ← require (CallSetGripperControlMode mode s_kDefaultRpcTimeoutMs) 750 "SetGripperControlMode";
    modify (arm_with_gripper_mode mode).

Definition arm_home : arm unit :=
  _ ← s_stopControlLocked;
  _ ← require (CallAcquireControlLease s_kHomeLeaseDurationMs 1000) 1500 "ExtendControlLeaseForHome";
  _ ← try_catch (require (CallHome 10000) 10500 "Home")
        (fun e => _ ← succeeded (CallAcquireControlLease s_kLeaseDurationMs 1000) 1500; throw e);
  require (CallAcquireControlLease s_kLeaseDurationMs 1000) 1500 "RestoreControlLeaseAfterHome".

Definition set_mode (mode : Z) (operation : string) : arm unit :=
  _ ← s_stopControlLocked;
  require (CallSetArmMode mode s_kDefaultRpcTimeoutMs) 750 operation.
Definition enable : arm unit := set_mode kPc "Enable".
Definition drag : arm unit := set_mode kDrag "Drag".
Definition disable : arm unit := set_mode kDamp "Disable".

(** The loop over the joints from [joint] on. *)
Fixpoint clear_joints (count : nat) (joint : Z) : arm unit :=
  match count with
  | O => mret tt
  | S count' =>
      _ ← require (CallClearError joint s_kDefaultRpcTimeoutMs) 750 "ClearError";
      clear_joints count' (joint + 1)
  end.

Definition automaticErrorRecovery : arm unit :=
  _ ← s_stopControlLocked;
  _ ← require (CallClearFaults s_kDefaultRpcTimeoutMs) 750 "ClearFaults";
  clear_joints 6 0.

(** ** Motor registers *)

Definition s_validJointId (joint : Z) : bool := (joint >=? 1) && (joint <=? 7).
Definition s_wireJointId (joint : Z) : Z := u8 (joint - 1).

Definition arm_readMotorRegister (joint register : Z) : arm (option Z) :=
  if negb (s_validJointId joint) then mret None
  else
    submit ← ask (EpSubmit (CallReadMotorRegister (s_wireJointId joint) register s_kDefaultRpcTimeoutMs));
    if negb (bool_decide (fst submit = kOk)) then mret None
    else
      waited ← ask (EpWait (snd submit) 750);
      taken ← ask (EpTakeMotorRegister (snd submit));
      let '(st, result, value) := taken in
      let value := default 0 value in
      if negb (bool_decide (fst waited = kOk)) || negb (bool_decide (st = kOk)) || negb (isfinite value)
      then mret None else mret (Some value).

Definition arm_writeMotorRegister (joint register value : Z) : arm bool :=
  if s_validJointId joint && isfinite value
  then succeeded (CallWriteMotorRegister (s_wireJointId joint) register value s_kDefaultRpcTimeoutMs) 750
  else mret false.

Definition storeParameters (joint : Z) : arm bool :=
  if s_validJointId joint
  then succeeded (CallStoreMotorParameters (s_wireJointId joint) s_kDefaultRpcTimeoutMs) 750
  else mret false.

Definition setZeroPoint (joint : Z) : arm bool :=
  if s_validJointId joint
  then succeeded (CallSetMotorZero (s_wireJointId joint) s_kDefaultRpcTimeoutMs) 750
  else mret false.

(** ** Control sessions *)

(** [CommandCapability] and the two maps into it. *)
Definition s_armCapabilityFor (t : CommandType) : Z :=
  Z.shiftl 1 (match t with
    | TJointPosVel => 1 | TJointVel => 2 | TJointPVT => 3 | TCartesianPose => 4
    | TCartesianVelocities => 5 | TJointMIT => 0
    end).
Definition s_gripperCapabilityFor (t : CommandType) : Z :=
  Z.shiftl 1 (match t with TJointPosVel => 7 | TJointVel => 8 | TJointPVT => 9 | _ => 6 end).
Definition supports (capability : Z) (i : DeviceInfo) : bool :=
  negb (Z.land (fi_command_capabilities i) capability =? 0).
Definition s_controlModeFor (t : CommandType) : Z :=
  match t with
  | TJointPosVel => kPositionVelocity | TJointVel => kVelocity | TJointPVT => kPvt | _ => kMit
  end.

Definition s_prepareControlLocked (t : CommandType) : arm Z :=
  info ← gets m_device_info;
  if negb (supports (s_armCapabilityFor t) info)
  then throw (CommandException "firmware does not advertise this arm command capability")
  else
    _ ← s_stopControlLocked;
    _ ← s_requestPcMode;
    _ ← s_ensureMode (s_controlModeFor t);
    _ ← ask (StoreStop false);
    _ ← ask (StoreRunning true);
    ask CurrentGeneration.

Definition s_prepareGripperControl (t : CommandType) : arm unit :=
  info ← gets m_device_info;
  if negb (supports (s_gripperCapabilityFor t) info)
  then throw (CommandException "firmware does not advertise this gripper command capability")
  else
    _ ← s_requestPcMode;
    s_ensureGripperMode (s_controlModeFor t).

(** The endpoint's command for a user's one, and its name in errors. *)
Definition arm_command (dt : Z) (c : UserCommand) : Command * string :=
  match c with
  | UJointMIT c => (CmdJointMit c dt, "JointMitCommand")
  | UJointPosVel c => (CmdJointPositionVelocity c, "JointPositionVelocityCommand")
  | UJointVel c => (CmdJointVelocity c, "JointVelocityCommand")
  | UJointPVT c => (CmdJointPvt c, "JointPvtCommand")
  | UCartesianPose c => (CmdCartesianPose c dt, "CartesianPoseCommand")
  | UCartesianVelocities c => (CmdCartesianVelocity c dt, "CartesianVelocityCommand")
  end%string.

Definition s_sendCommand (c : UserCommand) : arm unit :=
  dt ← gets m_fw_dt_us;
  now ← ask NowUs;
  let '(command, operation) := arm_command dt c in
  st ← ask (EpSend command now);
  s_requireCommand st operation.

(** [s_sendControlCommand]: [ControlGeneration::send] around the submission,
    which leaves the gate also when it throws. *)
Definition s_sendControlCommand (c : UserCommand) (generation : Z) : arm unit :=
  entered ← ask (GateEnter generation);
  if negb entered then throw (ControlException "Control handle has expired")
  else
    _ ← try_catch (s_sendCommand c) (fun e => _ ← ask GateLeave; throw e);
    ask GateLeave.

(** The four gripper commands; other types have no overload. *)
Definition gripper_command (dt : Z) (c : UserCommand) : option (Command * string) :=
  match c with
  | UJointMIT c => Some (CmdGripperMit c dt, "GripperMitCommand")
  | UJointPosVel c => Some (CmdGripperPositionVelocity c, "GripperPositionVelocityCommand")
  | UJointVel c => Some (CmdGripperVelocity c, "GripperVelocityCommand")
  | UJointPVT c => Some (CmdGripperPvt c, "GripperPvtCommand")
  | UCartesianPose _ | UCartesianVelocities _ => None
  end%string.

Definition s_sendGripperCommand (c : UserCommand) : arm unit :=
  dt ← gets m_fw_dt_us;
  match gripper_command dt c with
  | None => mret tt
  | Some (command, operation) =>
      now ← ask NowUs;
      st ← ask (EpSend command now);
      s_requireCommand st operation
  end.

(** ** The control loops

    [m_running && !m_stop_flag], in the order of the accesses. *)
Definition live : arm bool :=
  running ← ask LoadRunning;
  if negb running then mret false else stopped ← ask LoadStop; mret (negb stopped).

Definition live_session (generation : Z) : arm bool :=
  ok ← live;
  if negb ok then mret false
  else current ← ask CurrentGeneration; mret (generation =? current).

(** The rounds of [s_controlLoop]; [Some] when the loop is left. *)
Fixpoint control_rounds (fuel : nat) (generation : Z) : arm (option unit) :=
  match fuel with
  | O => mret None
  | S fuel' =>
      go ← live_session generation;
      if negb go then mret (Some tt)
      else
        acquired ← ask TryAcquire;
        if negb acquired then control_rounds fuel' generation
        else
          _ ← ask ClearWake;
          go ← live_session generation;
          if negb go then mret (Some tt)
          else
            state ← ask TakeLatestState;
            match state with
            | None => control_rounds fuel' generation
            | Some state =>
                answer ← ask (Callback state);
                match answer with
                | None => throw CallbackException
                | Some (command, finished) =>
                    go ← live_session generation;
                    if negb go then mret (Some tt)
                    else
                      _ ← s_sendControlCommand command generation;
                      if finished : bool then mret (Some tt) else control_rounds fuel' generation
                end
            end
  end.

(** [s_cleanup], which runs however the loop is left. *)
Definition loop_cleanup (generation : Z) : arm unit :=
  current ← ask CurrentGeneration;
  if generation =? current then ask (StoreRunning false) else mret tt.

Definition s_controlLoop (fuel : nat) (t : CommandType) : arm (option unit) :=
  generation ← s_prepareControlLocked t;
  r ← try_catch (control_rounds fuel generation)
        (fun e => _ ← loop_cleanup generation; throw e);
  match r with
  | None => mret None
  | Some _ => _ ← loop_cleanup generation; mret (Some tt)
  end.

Fixpoint gripper_rounds (fuel : nat) : arm (option unit) :=
  match fuel with
  | O => mret None
  | S fuel' =>
      go ← live;
      if negb go then mret (Some tt)
      else
        _ ← ask Acquire;
        _ ← ask ClearWake;
        go ← live;
        if negb go then mret (Some tt)
        else
          state ← ask TakeLatestState;
          match state with
          | None => gripper_rounds fuel'
          | Some state =>
              answer ← ask (Callback state);
              match answer with
              | None => throw CallbackException
              | Some (command, finished) =>
                  _ ← s_sendGripperCommand command;
                  if finished : bool then mret (Some tt) else gripper_rounds fuel'
              end
          end
  end.

Definition s_gripperLoop (fuel : nat) (t : CommandType) : arm (option unit) :=
  _ ← ask (StoreRunning true);
  _ ← ask (StoreStop false);
  _ ← s_requestPcMode;
  _ ← s_ensureGripperMode (s_controlModeFor t);
  r ← gripper_rounds fuel;
  match r with
  | None => mret None
  | Some _ => _ ← ask (StoreRunning false); mret (Some tt)
  end.

(** ** Feedback

    What [m_snapshot_mutex] protects. *)
Record Feedback := {
  m_latest_state : option ArmState;  (* [None]: the initial, empty state *)
  m_latest_state_generation : Z;
  m_consumed_state_generation : Z
}.
Definition feedback0 : Feedback := {|
  m_latest_state := None; m_latest_state_generation := 0; m_consumed_state_generation := 0 |}.

(** [s_onArmStatus], the part on the snapshot. *)
Definition s_onArmStatus (s : FciArmStatusSnapshot) (f : Feedback) : Feedback := {|
  m_latest_state := Some (snap_state s); m_latest_state_generation := snap_generation s;
  m_consumed_state_generation := m_consumed_state_generation f |}.

Definition s_takeLatestState (f : Feedback) : option ArmState * Feedback :=
  let generation := m_latest_state_generation f in
  if (generation =? 0) || (generation =? m_consumed_state_generation f) then (None, f)
  else
    (m_latest_state f,
     {| m_latest_state := m_latest_state f; m_latest_state_generation := generation;
        m_consumed_state_generation := generation |}).

(** ** Opening and closing *)

Section opening.
(** [m_transport->usesDirectWirelink()], and [std::error_code::message]. *)
Variables (direct : bool) (error_message : Z -> string).

Definition require_setup (st : FciEndpointStatus) (operation : string) : arm unit :=
  if negb (bool_decide (st = kOk)) then throw (ProtocolException (s_operationError operation st None))
  else mret tt.

Definition attach : arm unit :=
  if direct then
    st ← ask EpAttachDirectTransport;
    if negb (bool_decide (st = kOk)) then
      e ← ask TrLastError;
      if negb (e =? 0)
      then throw (NetworkException ("Wirelink direct transport setup failed: " +:+ error_message e) e)
      else throw (ProtocolException (s_operationError "Wirelink direct transport setup" st None))
    else mret tt
  else st ← ask EpSetSink; require_setup st "Wirelink transport sink setup".

Definition clear_receive : arm unit :=
  if direct then mret tt else ask (TrSetReceiveCallback false).

Definition start_endpoint : arm unit :=
  st ← ask EpStart;
  if negb (bool_decide (st = kOk)) then
    _ ← clear_receive;
    throw (ProtocolException (s_operationError "Wirelink endpoint start" st None))
  else mret tt.

(** The [try] block: identify the peer, then take control. *)
Definition identify_and_acquire (expected_serial : bytes) : arm unit :=
  _ ← s_fetchDeviceInfo;
  info ← gets m_device_info;
  let v := fi_protocol_version info in
  if negb (isProtocolVersionCompatible v)
  then throw (IncompatibleVersionException ("unsupported FCI protocol version " +:+
         pretty (m_major v) +:+ "." +:+ pretty (m_minor v) +:+ "." +:+ pretty (m_patch v)))
  else if negb (text_eqb expected_serial []) && negb (text_eqb (fi_serial_number info) []) &&
          negb (text_eqb expected_serial (fi_serial_number info))
  then throw (IncompatibleVersionException "USB serial and firmware serial do not match")
  else
    _ ← require (CallAcquireControlLease s_kLeaseDurationMs 1000) 1500 "AcquireControlLease";
    s_fetchDeviceSettings.

Definition open_arm (expected_serial : bytes) : arm unit :=
  st ← ask EpInitialize;
  _ ← require_setup st "Wirelink endpoint initialization";
  _ ← attach;
  st ← ask EpSetCallbacks;
  _ ← require_setup st "Wirelink callback setup";
  _ ← (if direct then mret tt else ask (TrSetReceiveCallback true));
  _ ← start_endpoint;
  try_catch (identify_and_acquire expected_serial)
    (fun e => _ ← clear_receive; _ ← ask EpStop; throw e).

(** The destructor. *)
Definition close_arm : arm unit :=
  _ ← arm_stop;
  lease ← ask EpControlLease;
  _ ← (if negb (l_token lease =? 0) then succeeded (CallReleaseControlLease 100) 250 else mret false);
  _ ← clear_receive;
  ask EpStop.
End opening.
