(* ===== verification/ArmProps.v ===== *)
(** * The arm: theorems

    What the remote operations of [ArmImpl.v] do on the wire, on every path:
    each statement gives the shape of the whole trace of calls. *)

From Stdlib Require Import String Sorted.
From S2P Require Import Prelude DeviceTypes UsbUri Endpoint EndpointOps EndpointInv EndpointProps EndpointCalls Commands Prog Discovery ArmImpl.

Open Scope string_scope.
Open Scope Z_scope.
Open Scope list_scope.

(** ** Runs of a program with state and exceptions *)

Lemma arm_bind_inv {A B} (p : arm A) (f : A -> arm B) s l s' r :
  runs ((p ≫= f) s) l (s', r) ->
  exists l1 l2 s1 r1, l = l1 ++ l2 /\ runs (p s) l1 (s1, r1) /\
    match r1 with
    | inl e => l2 = [] /\ s' = s1 /\ r = inl e
    | inr a => runs (f a s1) l2 (s', r)
    end.
Proof.
  change ((p ≫= f) s) with
    (out ← p s; match snd out with inl e => mret (fst out, inl e) | inr a => f a (fst out) end).
  intros (l1 & l2 & [s1 r1] & -> & Hp & H)%runs_bind. exists l1, l2, s1, r1.
  split; [done|]. split; [done|]. destruct r1; [|done]. by destruct H as [-> [= -> ->]].
Qed.

Lemma arm_ask_inv {R B} (c : arm_call R) (f : R -> arm B) s l out :
  runs ((ask c ≫= f) s) l out -> exists r l', l = Event c r :: l' /\ runs (f r s) l' out.
Proof.
  destruct out as [s' r]. intros (l1 & l2 & s1 & r1 & -> & H1 & H2)%arm_bind_inv.
  unfold ask in H1. step_call H1 a. destruct H1 as [-> [= <- <-]]. by exists a, l2.
Qed.

Lemma arm_try_inv {A} (p : arm A) h s l s' r :
  runs (try_catch p h s) l (s', r) ->
  exists l1 l2 s1 r1, l = l1 ++ l2 /\ runs (p s) l1 (s1, r1) /\
    match r1 with
    | inl e => runs (h e s1) l2 (s', r)
    | inr a => l2 = [] /\ s' = s1 /\ r = inr a
    end.
Proof.
  unfold try_catch. intros (l1 & l2 & [s1 r1] & -> & Hp & H)%runs_bind. exists l1, l2, s1, r1.
  split; [done|]. split; [done|]. destruct r1; [done|]. by destruct H as [-> [= -> ->]].
Qed.

Lemma arm_ask_last {R} (c : arm_call R) s l s' r :
  runs (ask c s) l (s', r) -> exists a, l = [Event c a] /\ s' = s /\ r = inr a.
Proof. unfold ask. intros H. step_call H a. destruct H as [-> [= <- <-]]. by exists a. Qed.

(** One call of a program whose trace is known. *)
Ltac step_ask H r :=
  let l := fresh "l" in apply arm_ask_inv in H; destruct H as (r & l & -> & H).

(** ** One operation *)

Definition acknowledged (c : PublicCall) (wait : Z) (l : list (event arm_call)) : Prop :=
  exists id st res res', st <> kBusy /\
    l = [Event (EpSubmit c) (kOk, id); Event (EpWait id wait) (st, res); Event (EpTake id) (kOk, res')].

(** The endpoint refuses the call, it is not over in time, or it ends in an error. *)
Definition not_acknowledged (c : PublicCall) (wait : Z) (l : list (event arm_call)) : Prop :=
  (exists st id, st <> kOk /\ l = [Event (EpSubmit c) (st, id)]) \/
  (exists id res, l = [Event (EpSubmit c) (kOk, id); Event (EpWait id wait) (kBusy, res)]) \/
  (exists id st res st' res', st <> kBusy /\ st' <> kOk /\
    l = [Event (EpSubmit c) (kOk, id); Event (EpWait id wait) (st, res); Event (EpTake id) (st', res')]).

Lemma require_inv c wait operation s l s' r :
  runs (require c wait operation s) l (s', r) ->
  s' = s /\ (r = inr tt /\ acknowledged c wait l \/
             exists m, r = inl (CommandException m) /\ not_acknowledged c wait l).
Proof.
  unfold require, s_requireOperation. intros H. step_ask H submit. destruct submit as [st id].
  cbn [fst snd] in H. on_status H st.
  2:{ destruct H as [-> [= <- <-]]. split; [done|]. right. eexists. split; [done|]. left. by exists st, id. }
  step_ask H waited. destruct waited as [st res]. cbn [fst snd] in H.
  destruct (decide (st = kBusy)) as [->|Hst].
  { destruct H as [-> [= <- <-]]. split; [done|]. right. eexists. split; [done|]. right. left. by exists id, res. }
  step_ask H taken. destruct taken as [st' res']. cbn [fst snd] in H. on_status H st'.
  - destruct H as [-> [= <- <-]]. split; [done|]. left. split; [done|]. by exists id, st, res, res'.
  - destruct H as [-> [= <- <-]]. split; [done|]. right. eexists. split; [done|]. right. right.
    by exists id, st, res, st', res'.
Qed.

Lemma succeeded_inv c wait s l s' r :
  runs (succeeded c wait s) l (s', r) ->
  s' = s /\ exists b, r = inr b /\
    if b : bool then acknowledged c wait l else not_acknowledged c wait l.
Proof.
  unfold succeeded, s_operationSucceeded. intros H. step_ask H submit. destruct submit as [st id].
  cbn [fst snd] in H. on_status H st.
  2:{ destruct H as [-> [= <- <-]]. split; [done|]. exists false. split; [done|]. left. by exists st, id. }
  step_ask H waited. destruct waited as [st res]. cbn [fst snd] in H.
  destruct (decide (st = kBusy)) as [->|Hst].
  { destruct H as [-> [= <- <-]]. split; [done|]. exists false. split; [done|]. right. left. by exists id, res. }
  step_ask H taken. destruct taken as [st' res']. destruct H as [-> [= <- <-]]. split; [done|].
  cbn [fst]. eexists. split; [done|]. case_bool_decide as Hst'.
  - subst st'. by exists id, st, res, res'.
  - right. right. by exists id, st, res, st', res'.
Qed.

(** The calls of [s_stopControlLocked]. *)
Definition stopping : list (event arm_call) :=
  [Event (StoreStop true) tt; Event (StoreRunning false) tt; Event SignalWake tt;
   Event AdvanceGeneration tt; Event DrainSends tt].

Lemma stop_calls s l s' r :
  runs (s_stopControlLocked s) l (s', r) -> l = stopping /\ s' = s /\ r = inr tt.
Proof.
  unfold s_stopControlLocked. intros H. step_ask H u1. step_ask H u2. step_ask H u3. step_ask H u4.
  apply arm_ask_last in H as (u5 & -> & -> & ->). by destruct u1, u2, u3, u4, u5.
Qed.

Lemma stop_bind_inv {B} (f : unit -> arm B) s l s' r :
  runs ((s_stopControlLocked ≫= f) s) l (s', r) ->
  exists l', l = stopping ++ l' /\ runs (f tt s) l' (s', r).
Proof.
  intros (l1 & l2 & s1 & r1 & -> & (-> & -> & ->)%stop_calls & H)%arm_bind_inv. by exists l2.
Qed.

(** A required operation in front of a program. *)
Lemma require_bind_inv {B} c wait operation (f : unit -> arm B) s l s' r :
  runs ((require c wait operation ≫= f) s) l (s', r) ->
  (exists l1 l2, l = l1 ++ l2 /\ acknowledged c wait l1 /\ runs (f tt s) l2 (s', r)) \/
  (not_acknowledged c wait l /\ s' = s /\ exists m, r = inl (CommandException m)).
Proof.
  intros (l1 & l2 & s1 & r1 & -> & [-> Hr]%require_inv & H)%arm_bind_inv.
  destruct Hr as [[-> Ha]|(m & -> & Hn)].
  - left. by exists l1, l2.
  - right. destruct H as (-> & -> & ->). rewrite app_nil_r. eauto.
Qed.

(** ** Homing *)

Definition extend_lease : PublicCall := CallAcquireControlLease s_kHomeLeaseDurationMs 1000.
Definition normal_lease : PublicCall := CallAcquireControlLease s_kLeaseDurationMs 1000.

(** Homing leaves the short lease behind it.  Control is stopped first; the
    arm is told to home only under an acknowledged extension of the lease; and
    whenever the extension was acknowledged, on success and on every failure
    after it, the last operation of [home] asks for the normal lease again.
    It returns exactly when the extension, the homing and the restored lease
    were all acknowledged, and throws a [CommandException] otherwise. *)
Theorem home_restores_lease s l s' r :
  runs (arm_home s) l (s', r) ->
  s' = s /\ exists l', l = stopping ++ l' /\
  ((exists m, r = inl (CommandException m) /\ not_acknowledged extend_lease 1500 l') \/
   exists l1 l2 l3, l' = l1 ++ l2 ++ l3 /\ acknowledged extend_lease 1500 l1 /\
     ((r = inr tt /\ acknowledged (CallHome 10000) 10500 l2 /\ acknowledged normal_lease 1500 l3) \/
      (exists m, r = inl (CommandException m) /\ acknowledged (CallHome 10000) 10500 l2 /\
         not_acknowledged normal_lease 1500 l3) \/
      (exists m, r = inl (CommandException m) /\ not_acknowledged (CallHome 10000) 10500 l2 /\
         (acknowledged normal_lease 1500 l3 \/ not_acknowledged normal_lease 1500 l3)))).
Proof.
  unfold arm_home. intros (l' & -> & H)%stop_bind_inv.
  apply require_bind_inv in H as [(l1 & l2 & -> & Hext & H)|(Hn & -> & m & ->)].
  2:{ split; [done|]. exists l'. split; [done|]. left. by exists m. }
  apply arm_bind_inv in H as (l3 & l4 & s1 & r1 & -> & Hhome & H).
  apply arm_try_inv in Hhome as (k1 & k2 & s2 & r2 & -> & Hreq & Hh).
  apply require_inv in Hreq as [-> [[-> Ha]|(m & -> & Hn)]].
  - destruct Hh as (-> & -> & ->). rewrite app_nil_r.
    apply require_inv in H as [-> [[-> Hl]|(m & -> & Hl)]]; (split; [done|]);
      eexists; (split; [reflexivity|]); right; exists l1, k1, l4; split_and!; try done.
    + by left.
    + right. left. by exists m.
  - apply arm_bind_inv in Hh as (k3 & k4 & s3 & r3 & -> & [-> (b & -> & Hb)]%succeeded_inv & Hthrow).
    destruct Hthrow as [-> [= <- <-]]. destruct H as (-> & -> & ->). rewrite !app_nil_r.
    split; [done|]. eexists. split; [reflexivity|]. right. exists l1, k1, k3. split; [done|].
    split; [done|]. right. right. exists m. split; [done|]. split; [done|]. destruct b; auto.
Qed.

(** ** Preparing a control session *)

Definition pc_mode : PublicCall := CallSetArmMode kPc s_kDefaultRpcTimeoutMs.
Definition control_mode (t : CommandType) : PublicCall :=
  CallSetArmControlMode (s_controlModeFor t) s_kDefaultRpcTimeoutMs.

Definition starts_session (ev : event arm_call) : bool :=
  match ev with Event c _ => match c with StoreRunning true => true | _ => false end end.

Lemma ensureMode_inv t s l s' r :
  runs (s_ensureMode (s_controlModeFor t) s) l (s', r) ->
  (r = inr tt /\ m_current_mode s' = Some (s_controlModeFor t) /\
     (m_current_mode s = Some (s_controlModeFor t) /\ l = [] \/ acknowledged (control_mode t) 750 l)) \/
  (s' = s /\ not_acknowledged (control_mode t) 750 l /\ exists m, r = inl (CommandException m)).
Proof.
  unfold s_ensureMode. intros (l1 & l2 & s1 & r1 & -> & Hg & H)%arm_bind_inv. destruct Hg as [-> [= <- <-]].
  destruct (decide (m_current_mode s = Some _)) as [Hm|Hm].
  { destruct H as [-> [= <- <-]]. left. split; [done|]. split; [done|]. by left. }
  apply require_bind_inv in H as [(k1 & k2 & -> & Ha & [-> [= <- <-]])|(Hn & -> & Hr)].
  - left. rewrite app_nil_r. split; [done|]. split; [done|]. by right.
  - right. by split_and!.
Qed.

Lemma not_acknowledged_quiet c wait l : not_acknowledged c wait l -> Forall (fun ev => starts_session ev = false) l.
Proof.
  intros [(st & id & _ & ->)|[(id & res & ->)|(id & st & res & st' & res' & _ & _ & ->)]];
    by repeat constructor.
Qed.
Lemma acknowledged_quiet c wait l : acknowledged c wait l -> Forall (fun ev => starts_session ev = false) l.
Proof. intros (id & st & res & res' & _ & ->). by repeat constructor. Qed.

(** A control session starts only when the arm is ready for it.
    [s_prepareControlLocked] returns a generation only if the firmware
    advertises the command type, after it stopped every earlier session and
    waited for its submissions, and after the arm acknowledged the PC mode and
    the control mode of the command type (or had acknowledged this control mode
    before, as [m_current_mode] says); only then does it set [m_running].  When
    it throws, no session is started and [m_current_mode] is as before; an
    unsupported command type disturbs nothing at all. *)
Theorem control_prepared t s l s' r :
  runs (s_prepareControlLocked t s) l (s', r) ->
  match r with
  | inr generation =>
      supports (s_armCapabilityFor t) (m_device_info s) = true /\
      m_current_mode s' = Some (s_controlModeFor t) /\
      exists l1 l2, l = stopping ++ l1 ++ l2 ++
        [Event (StoreStop false) tt; Event (StoreRunning true) tt; Event CurrentGeneration generation] /\
      acknowledged pc_mode 750 l1 /\
      (m_current_mode s = Some (s_controlModeFor t) /\ l2 = [] \/ acknowledged (control_mode t) 750 l2)
  | inl e =>
      s' = s /\ (exists m, e = CommandException m) /\
      Forall (fun ev => starts_session ev = false) l /\
      (supports (s_armCapabilityFor t) (m_device_info s) = false -> l = [])
  end.
Proof.
  unfold s_prepareControlLocked. intros (l1 & l2 & s1 & r1 & -> & Hg & H)%arm_bind_inv. destruct Hg as [-> [= <- <-]].
  destruct (supports _ _) eqn:Hsup; cbn [negb] in H.
  2:{ destruct H as [-> [= <- <-]]. split_and!; [done|by eexists|constructor|done]. }
  apply stop_bind_inv in H as (l' & -> & H).
  assert (Forall (fun ev => starts_session ev = false) stopping) as Hstop by by repeat constructor.
  apply require_bind_inv in H as [(k1 & k2 & -> & Hpc & H)|(Hn & -> & m & ->)].
  2:{ split_and!; [done|by eexists| |done]. cbn [app]. apply Forall_app. split; [done|].
      by eapply not_acknowledged_quiet. }
  apply arm_bind_inv in H as (k3 & k4 & s1 & r1 & -> & Hmode & H).
  apply ensureMode_inv in Hmode as [(-> & Hm & Hl)|(-> & Hn & m & ->)].
  - step_ask H u1. step_ask H u2. apply arm_ask_last in H as (g & -> & -> & ->). destruct u1, u2.
    split; [done|]. split; [done|]. exists k1, k3. by split_and!.
  - destruct H as (-> & -> & ->). rewrite app_nil_r. split_and!; [done|by eexists| |done].
    cbn [app]. apply Forall_app. split; [done|]. apply Forall_app. split; [by eapply acknowledged_quiet|].
    by eapply not_acknowledged_quiet.
Qed.

(** ** Opening *)

(** The operations that could disturb another controller of the device. *)
Definition disturbs (ev : event arm_call) : bool :=
  match ev with
  | Event c _ =>
      match c with
      | EpSubmit (CallGetDeviceInfo _ | CallGetDeviceSettings _) => false
      | EpSubmit _ | EpSend _ _ => true
      | _ => false
      end
  end.
Definition calm (ev : event arm_call) : Prop := disturbs ev = false.

(** What the device said about itself, and that it is the expected one. *)
Definition identified (expected_serial : bytes) (info : DeviceInfo) (l : list (event arm_call)) : Prop :=
  (exists l' id result i, l = l' ++ [Event (EpTakeDeviceInfo id) (kOk, result, i)] /\ info = default info0 i) /\
  isProtocolVersionCompatible (fi_protocol_version info) = true /\
  (expected_serial = [] \/ fi_serial_number info = [] \/ expected_serial = fi_serial_number info).

Definition open_lease : PublicCall := CallAcquireControlLease s_kLeaseDurationMs 1000.

Lemma calm_count l : Forall calm l -> count_calls disturbs l = 0%nat.
Proof. apply count_calls_none. Qed.

Lemma fetchInfo_calm s : only calm (s_fetchDeviceInfo s).
Proof. unfold s_fetchDeviceInfo. intros [st id]; split; [done|]. cbn. destruct (negb _); [done|].
  intros waited; split; [done|]. intros [[st' res] i]; split; [done|]. cbn. by destruct (_ || _). Qed.
Lemma fetchSettings_calm s : only calm (s_fetchDeviceSettings s).
Proof. unfold s_fetchDeviceSettings. intros [st id]; split; [done|]. cbn. destruct (negb _); [done|].
  intros waited; split; [done|]. intros [[st' res] i]; split; [done|]. cbn. by destruct (_ || _). Qed.

Lemma fetchInfo_inv s l s' r :
  runs (s_fetchDeviceInfo s) l (s', r) ->
  (s' = s /\ exists m, r = inl (ProtocolException m)) \/
  (r = inr tt /\ exists l' id result i,
     l = l' ++ [Event (EpTakeDeviceInfo id) (kOk, result, i)] /\ s' = arm_with_info (default info0 i) s).
Proof.
  unfold s_fetchDeviceInfo. intros H. step_ask H submit. destruct submit as [st id]. cbn [fst snd] in H.
  on_status H st; [|destruct H as [_ [= <- <-]]; left; split; [done|by eexists]].
  step_ask H waited. destruct waited as [st res]. step_ask H taken. destruct taken as [[st' res'] i].
  cbn [fst snd] in H. destruct (bool_decide (st = kOk)); cbn [negb orb] in H.
  2:{ destruct H as [_ [= <- <-]]. left. split; [done|by eexists]. }
  on_status H st'; [|destruct H as [_ [= <- <-]]; left; split; [done|by eexists]].
  destruct H as [-> [= <- <-]]. right. split; [done|].
  exists [Event (EpSubmit (CallGetDeviceInfo 1000)) (kOk, id); Event (EpWait id 1500) (st, res)], id, res', i.
  done.
Qed.

Lemma not_acknowledged_lease l : not_acknowledged open_lease 1500 l -> count_calls disturbs l = 1%nat.
Proof. by intros [(st & id & _ & ->)|[(id & res & ->)|(id & st & res & st' & res' & _ & _ & ->)]]. Qed.
Lemma acknowledged_lease l : acknowledged open_lease 1500 l -> count_calls disturbs l = 1%nat.
Proof. by intros (id & st & res & res' & _ & ->). Qed.

(** The shape of a trace in which control is taken at most once, after the
    device was identified. *)
Definition careful (expected_serial : bytes) (info : DeviceInfo) (l : list (event arm_call)) : Prop :=
  Forall calm l \/
  exists l1 l2 l3, l = l1 ++ l2 ++ l3 /\ Forall calm l1 /\ Forall calm l3 /\
    identified expected_serial info l1 /\
    (acknowledged open_lease 1500 l2 \/ not_acknowledged open_lease 1500 l2).

Lemma identify_inv serial s l s' r :
  runs (identify_and_acquire serial s) l (s', r) ->
  careful serial (m_device_info s') l /\
  (r = inr tt -> exists l1 l2 l3, l = l1 ++ l2 ++ l3 /\ identified serial (m_device_info s') l1 /\
     acknowledged open_lease 1500 l2).
Proof.
  unfold identify_and_acquire. intros (l1 & l2 & s1 & r1 & -> & Hf & H)%arm_bind_inv.
  pose proof (only_runs _ _ _ _ (fetchInfo_calm s) Hf) as Hc1.
  apply fetchInfo_inv in Hf as [(-> & m & ->)|(-> & l' & id & result & i & Hl1 & ->)].
  { destruct H as (-> & -> & ->). rewrite app_nil_r. split; [by left|done]. }
  apply arm_bind_inv in H as (l3 & l4 & s1 & r1 & -> & Hg & H). destruct Hg as [-> [= <- <-]].
  cbn [app]. set (info := default info0 i) in *. cbn [m_device_info arm_with_info] in H.
  destruct (isProtocolVersionCompatible _) eqn:Hv; cbn [negb] in H.
  2:{ destruct H as [-> [= <- <-]]. rewrite app_nil_r. split; [by left|done]. }
  destruct (_ && _) eqn:Hs in H.
  { destruct H as [-> [= <- <-]]. rewrite app_nil_r. split; [by left|done]. }
  assert (identified serial info l1) as Hid.
  { split; [by exists l', id, result, i|]. split; [done|]. unfold text_eqb in Hs.
    destruct (decide (serial = [])) as [|H1]; [by left|].
    destruct (decide (fi_serial_number info = [])) as [|H2]; [by right; left|].
    destruct (decide (serial = fi_serial_number info)) as [|H3]; [by right; right|].
    rewrite !bool_decide_false in Hs by done. done. }
  apply require_bind_inv in H as [(k1 & k2 & -> & Ha & H)|(Hn & -> & m & ->)].
  - pose proof (only_runs _ _ _ _ (fetchSettings_calm _) H) as Hc2.
    assert (m_device_info s' = info) as Hi.
    { clear -H. unfold s_fetchDeviceSettings in H. step_ask H submit. destruct submit as [st id'].
      cbn [fst snd] in H. destruct (negb _); [by destruct H as [_ [= <- _]]|]. step_ask H waited.
      step_ask H taken. destruct taken as [[st' res'] d]. destruct (_ || _); by destruct H as [_ [= <- _]]. }
    rewrite Hi. split; [right; exists l1, k1, k2; split_and!; auto|].
    intros _. by exists l1, k1, k2.
  - split; [|done]. right. exists l1, l4, []. rewrite app_nil_r. split_and!; auto.
Qed.

Lemma identified_app serial info k l : identified serial info l -> identified serial info (k ++ l).
Proof.
  intros [(l' & id & result & i & -> & Hi) H]. split; [|done].
  exists (k ++ l'), id, result, i. by rewrite <- app_assoc.
Qed.

Lemma careful_app serial info k l k' :
  Forall calm k -> Forall calm k' -> careful serial info l -> careful serial info (k ++ l ++ k').
Proof.
  intros Hk Hk' [Hl|(l1 & l2 & l3 & -> & H1 & H3 & Hi & Ha)].
  - left. apply Forall_app. split; [done|]. by apply Forall_app.
  - right. exists (k ++ l1), l2, (l3 ++ k'). rewrite <- !app_assoc.
    split_and!; [done|by apply Forall_app|by apply Forall_app|by apply identified_app|done].
Qed.

Definition stopped_at_end (l : list (event arm_call)) : Prop := exists l', l = l' ++ [Event EpStop tt].
Definition was_started (ev : event arm_call) : bool :=
  match ev with Event c r => match c in arm_call R return R -> bool with
    | EpStart => fun r => bool_decide (r = kOk) | _ => fun _ => false end r end.

Section opening.
Variables (direct : bool) (error_message : Z -> string).

Lemma attach_inv s l s' r :
  runs (attach direct error_message s) l (s', r) ->
  Forall calm l /\ s' = s /\ count_calls was_started l = 0%nat.
Proof.
  unfold attach, require_setup. destruct direct.
  - intros H. step_ask H st. destruct (bool_decide _); cbn [negb] in H.
    + destruct H as [-> [= <- <-]]. split_and!; [by repeat constructor|done..].
    + step_ask H e. destruct (negb _); destruct H as [-> [= <- <-]]; (split_and!; [by repeat constructor|done..]).
  - intros H. step_ask H st. destruct (negb _); destruct H as [-> [= <- <-]];
      (split_and!; [by repeat constructor|done..]).
Qed.

Lemma setup_bind_inv {B} st operation (f : unit -> arm B) s l s' r :
  runs ((require_setup st operation ≫= f) s) l (s', r) ->
  (st = kOk /\ runs (f tt s) l (s', r)) \/ (l = [] /\ s' = s /\ exists e, r = inl e).
Proof.
  unfold require_setup. intros (l1 & l2 & s1 & r1 & -> & Hq & H)%arm_bind_inv.
  case_bool_decide as Hst; cbn [negb] in Hq; destruct Hq as [-> [= <- <-]].
  - by left.
  - destruct H as (-> & -> & ->). right. eauto.
Qed.

Lemma clear_receive_inv s l s' r :
  runs (clear_receive direct s) l (s', r) ->
  s' = s /\ r = inr tt /\ Forall calm l /\ count_calls was_started l = 0%nat.
Proof.
  unfold clear_receive. destruct direct.
  - intros [-> [= <- <-]]. split_and!; [done..|constructor|done].
  - intros H. apply arm_ask_last in H as (u & -> & -> & ->). destruct u.
    split_and!; [done..|by repeat constructor|done].
Qed.

(** The [try] block of the constructor. *)
Definition guarded (serial : bytes) : arm unit :=
  try_catch (identify_and_acquire serial) (fun e => _ ← clear_receive direct; _ ← ask EpStop; throw e).

Lemma guarded_inv serial s l s' r :
  runs (guarded serial s) l (s', r) ->
  careful serial (m_device_info s') l /\
  (r = inr tt -> exists l1 l2 l3, l = l1 ++ l2 ++ l3 /\ identified serial (m_device_info s') l1 /\
     acknowledged open_lease 1500 l2) /\
  (forall e, r = inl e -> stopped_at_end l).
Proof.
  intros (l1 & l2 & s1 & r1 & -> & [Hc Hok]%identify_inv & H)%arm_try_inv.
  destruct r1 as [e|[]].
  - apply arm_bind_inv in H as (k1 & k2 & s2 & r2 & -> & (-> & -> & Hk & _)%clear_receive_inv & H).
    step_ask H u. destruct H as [-> [= <- <-]]. destruct u. split_and!; [|done|].
    + apply (careful_app _ _ [] l1); [constructor| |done]. apply Forall_app. split; [done|by repeat constructor].
    + intros e' _. exists (l1 ++ k1). by rewrite <- app_assoc.
  - destruct H as (-> & -> & ->). rewrite app_nil_r. split_and!; [done|by apply Hok|done].
Qed.

(** What precedes it: this part throws, or the endpoint was just started. *)
Lemma setup_inv serial s l s' r :
  runs (open_arm direct error_message serial s) l (s', r) ->
  (Forall calm l /\ s' = s /\ count_calls was_started l = 0%nat /\ exists e, r = inl e) \/
  exists pre l', l = (pre ++ [Event EpStart kOk]) ++ l' /\ Forall calm pre /\
    runs (guarded serial s) l' (s', r).
Proof.
  unfold open_arm. intros H. step_ask H st0.
  apply setup_bind_inv in H as [[_ H]|(-> & -> & e & ->)].
  2:{ left. split_and!; eauto. by repeat constructor. }
  apply arm_bind_inv in H as (k1 & k2 & s1 & r1 & -> & (Hk1 & -> & Hn1)%attach_inv & H).
  destruct r1 as [e|[]].
  { destruct H as (-> & -> & ->). rewrite app_nil_r. left. split_and!; eauto. by constructor. }
  step_ask H st1. apply setup_bind_inv in H as [[_ H]|(-> & -> & e & ->)].
  2:{ left. rewrite app_comm_cons, count_calls_app. cbn. rewrite Hn1. split_and!; eauto.
      constructor; [done|]. apply Forall_app. split; [done|by repeat constructor]. }
  apply arm_bind_inv in H as (k3 & k4 & s2 & r2 & -> & Hrecv & H).
  assert (s2 = s /\ r2 = inr tt /\ Forall calm k3 /\ count_calls was_started k3 = 0%nat) as (-> & -> & Hk3 & Hn3).
  { destruct direct; [by destruct Hrecv as [-> [= <- <-]]; split_and!; [done..|constructor|]|].
    apply arm_ask_last in Hrecv as (u & -> & -> & ->). destruct u. split_and!; [done..|by repeat constructor|done]. }
  apply arm_bind_inv in H as (k5 & k6 & s3 & r3 & -> & Hst & H).
  assert (Event EpInitialize st0 :: k1 ++ Event EpSetCallbacks st1 :: k3 ++ k5 ++ k6 =
    (Event EpInitialize st0 :: k1 ++ Event EpSetCallbacks st1 :: k3) ++ k5 ++ k6) as ->.
  { cbn. by rewrite <- !app_assoc. }
  assert (Forall calm (Event EpInitialize st0 :: k1 ++ Event EpSetCallbacks st1 :: k3)) as Hpre.
  { constructor; [done|]. apply Forall_app. split; [done|]. by constructor. }
  unfold start_endpoint in Hst. step_ask Hst st2. case_bool_decide as Hst2; cbn [negb] in Hst.
  - destruct Hst as [-> [= <- <-]]. subst st2. right. eexists _, k6. rewrite <- app_assoc. by split_and!.
  - apply arm_bind_inv in Hst as (q1 & q2 & s4 & r4 & -> & (-> & -> & Hq & Hnq)%clear_receive_inv & Hthrow).
    destruct Hthrow as [-> [= <- <-]]. destruct H as (-> & -> & ->). rewrite !app_nil_r. left.
    rewrite count_calls_app. cbn. rewrite count_calls_app. cbn. rewrite Hn1, Hn3, Hnq, bool_decide_false by done.
    split_and!; eauto. change (Forall calm ((Event EpInitialize st0 :: k1 ++ Event EpSetCallbacks st1 :: k3) ++
      Event EpStart st2 :: q1)). apply Forall_app. split; [done|]. by constructor.
Qed.

Lemma open_run serial s l s' r :
  runs (open_arm direct error_message serial s) l (s', r) ->
  careful serial (m_device_info s') l /\
  (r = inr tt -> exists l1 l2 l3, l = l1 ++ l2 ++ l3 /\ identified serial (m_device_info s') l1 /\
     acknowledged open_lease 1500 l2) /\
  (forall e, r = inl e -> count_calls was_started l <> 0%nat -> stopped_at_end l).
Proof.
  intros [(Hc & _ & Hn & e & ->)|(pre & l' & -> & Hpre & (Hc & Hok & Hstop)%guarded_inv)]%setup_inv.
  { split_and!; [by left|done|done]. }
  split_and!.
  - rewrite <- (app_nil_r l'). apply careful_app; [|constructor|done].
    apply Forall_app. split; [done|by repeat constructor].
  - intros (l1 & l2 & l3 & -> & Hid & Ha)%Hok. exists ((pre ++ [Event EpStart kOk]) ++ l1), l2, l3.
    rewrite <- (app_assoc (pre ++ _)). split_and!; [done|by apply identified_app|done].
  - intros e He _. destruct (Hstop e He) as [k ->]. eexists. by rewrite app_assoc.
Qed.

(** C16: opening an arm never disturbs a device before it is known to be the
    right one.  In every run of the constructor, the only operation that can
    disturb another controller is one request for the control lease; it comes
    after the device's own information was received, with a supported protocol
    version and a serial number that does not contradict the expected one.
    When the constructor returns, this request was acknowledged; when it throws
    after the endpoint was started, the last thing it does is stop the endpoint. *)
Theorem open_identifies_first serial s l s' r :
  runs (open_arm direct error_message serial s) l (s', r) ->
  careful serial (m_device_info s') l /\
  (r = inr tt -> exists l1 l2 l3, l = l1 ++ l2 ++ l3 /\ identified serial (m_device_info s') l1 /\
     acknowledged open_lease 1500 l2) /\
  (forall e, r = inl e -> count_calls was_started l <> 0%nat -> stopped_at_end l).
Proof. apply open_run. Qed.
End opening.

(** ** Waiting for the arm *)

#[export] Instance arm_clock : Clock arm_call := fun ev =>
  match ev with
  | Event c r =>
      match c in arm_call R return R -> list Z with
      | ClockNs => fun r => [r]
      | _ => fun _ => []
      end r
  end.

Lemma clock_now prev now l : advancing prev (Event ClockNs now :: l) -> prev < now /\ advancing now l.
Proof. by apply (advancing_reading _ _ [Event ClockNs now]). Qed.

(** The trace ends with the arm being ready: the transport is not down and the
    lease is held, or the lease was just acquired. *)
Definition reopen_lease : PublicCall := CallAcquireControlLease s_kLeaseDurationMs s_kDefaultRpcTimeoutMs.
Definition ready_at_end (l : list (event arm_call)) : Prop :=
  (exists l' c lease, l = l' ++ [Event TrConnectionState c; Event EpControlLease lease] /\
     c <> TransportState.kDisconnected /\ c <> TransportState.kReconnecting /\ c <> TransportState.kClosed /\
     (l_state lease = kHeld \/ l_state lease = kRenewQueued \/ l_state lease = kRenewing)) \/
  (exists l' wait l2, l = l' ++ l2 /\ acknowledged reopen_lease wait l2).

Lemma ready_app k l : ready_at_end l -> ready_at_end (k ++ l).
Proof.
  intros [(l' & c & lease & -> & H)|(l' & wait & l2 & -> & H)]; [left|right].
  - exists (k ++ l'), c, lease. by rewrite <- app_assoc.
  - exists (k ++ l'), wait, l2. by rewrite <- app_assoc.
Qed.

Lemma connectionState_inv s l s' r :
  runs (connectionState s) l (s', r) ->
  s' = s /\ exists st, r = inr st /\ (st = ArmConnection.kReady -> ready_at_end l).
Proof.
  unfold connectionState. intros H. step_ask H c.
  assert (forall st, runs ((mret st : arm ArmConnectionState) s) l0 (s', r) -> st <> ArmConnection.kReady ->
    s' = s /\ exists st, r = inr st /\ (st = ArmConnection.kReady -> ready_at_end (Event TrConnectionState c :: l0))) as Hst.
  { intros st [-> [= <- <-]] Hne. split; [done|]. by exists st. }
  destruct c; try (by apply Hst in H);
    step_ask H lease; destruct H as [-> [= <- <-]]; (split; [done|]); eexists; (split; [done|]);
    intros Hr; left; eexists [], _, lease; (split; [done|]); split_and!; try done;
    unfold lease_ready in Hr; destruct (l_state lease); auto; done.
Qed.

Lemma is_ready_inv s l s' r :
  runs (is_ready s) l (s', r) -> s' = s /\ exists b, r = inr b /\ (b = true -> ready_at_end l).
Proof.
  unfold is_ready. intros (l1 & l2 & s1 & r1 & -> & (-> & st & -> & Hst)%connectionState_inv & H)%arm_bind_inv.
  destruct H as [-> [= <- <-]]. split; [done|]. eexists. split; [done|]. rewrite app_nil_r.
  rewrite bool_decide_eq_true. done.
Qed.

Lemma last_ready_inv s l s' r :
  runs ((ready ← is_ready; mret (Some ready) : arm (option bool)) s) l (s', r) ->
  s' = s /\ exists b, r = inr (Some b) /\ (b = true -> ready_at_end l).
Proof.
  intros (l1 & l2 & s1 & r1 & -> & (-> & b & -> & Hb)%is_ready_inv & H)%arm_bind_inv.
  destruct H as [-> [= <- <-]]. rewrite app_nil_r. split; [done|]. by exists b.
Qed.

(** One attempt to acquire the lease. *)
Lemma attempt_inv (b : bool) wait s l s' r :
  runs ((if b then succeeded reopen_lease wait else mret false) s) l (s', r) ->
  s' = s /\ exists acquired, r = inr acquired /\ (acquired = true -> ready_at_end l).
Proof.
  destruct b.
  - intros [-> (acquired & -> & Ha)]%succeeded_inv. split; [done|]. exists acquired. split; [done|].
    intros ->. right. by exists [], wait, l.
  - intros [-> [= <- <-]]. split; [done|]. by exists false.
Qed.

Lemma wait_ready_ends fuel deadline prev s l s' r :
  advancing prev l -> 0 < Z.of_nat fuel -> deadline - prev < Z.of_nat fuel ->
  runs (wait_ready fuel deadline s) l (s', r) ->
  s' = s /\ exists b, r = inr (Some b) /\ (b = true -> ready_at_end l).
Proof.
  revert prev l. induction fuel as [|fuel IH]; intros prev l Ha Hf Hd H; [lia|]. cbn [wait_ready] in H.
  apply arm_bind_inv in H as (l1 & l2 & s1 & r1 & -> & (-> & st & -> & Hst)%connectionState_inv & H).
  apply advancing_app in Ha.
  destruct (decide (st = ArmConnection.kReady)).
  { destruct H as [-> [= <- <-]]. rewrite app_nil_r. split; [done|]. exists true. auto. }
  destruct (decide (st = ArmConnection.kClosed)).
  { destruct H as [-> [= <- <-]]. split; [done|]. by exists false. }
  step_ask H now. apply clock_now in Ha as [Hlt Ha].
  destruct (Z.geb_spec now deadline).
  { apply last_ready_inv in H as (-> & b & -> & Hb). split; [done|]. exists b. split; [done|].
    intros Hb'. apply ready_app, (ready_app [_]). auto. }
  apply arm_bind_inv in H as (l3 & l4 & s1 & r1 & -> & Hatt & H). apply advancing_app in Ha.
  assert (s1 = s /\ exists acquired, r1 = inr acquired /\ (acquired = true -> ready_at_end l3)) as (-> & acquired & -> & Hacq).
  { eapply (attempt_inv (bool_decide (st = ArmConnection.kControlUnavailable))).
    destruct (decide (st = ArmConnection.kControlUnavailable)) as [Hc|Hc];
      [rewrite (bool_decide_true _ Hc)|rewrite (bool_decide_false _ Hc)]; exact Hatt. }
  destruct acquired.
  { destruct H as [-> [= <- <-]]. rewrite app_nil_r. split; [done|]. exists true. split; [done|].
    intros _. apply ready_app, (ready_app [_]). auto. }
  step_ask H after. apply clock_now in Ha as [Hlt2 Ha].
  destruct (Z.geb_spec after deadline).
  { apply last_ready_inv in H as (-> & b & -> & Hb). split; [done|]. exists b. split; [done|].
    intros Hb'. apply ready_app, (ready_app [_]), ready_app, (ready_app [_]). auto. }
  step_ask H u. apply (advancing_app _ [_]) in Ha.
  apply (IH after) in H as (-> & b & -> & Hb); [|exact Ha|lia|lia].
  split; [done|]. exists b. split; [done|]. intros Hb'.
  apply ready_app, (ready_app [_]), ready_app, (ready_app [_; _]). auto.
Qed.

(** Waiting for the arm ends, and says [true] only of an arm that is
    ready.  If the clock advances from reading to reading (by a nanosecond at
    least), [waitUntilReady] returns by its deadline, whatever the transport
    and the endpoint answer; when it returns [true], the last thing it saw was
    a transport that is not down with a held lease, or its own acknowledged
    request for the lease. *)
Theorem waitUntilReady_ends fuel timeout s l s' r :
  timeout * 1000000 < Z.of_nat fuel -> StronglySorted Z.lt (readings l) ->
  runs (waitUntilReady fuel timeout s) l (s', r) ->
  s' = s /\ exists b, r = inr (Some b) /\ (b = true -> 0 <= timeout /\ ready_at_end l).
Proof.
  intros Hf [prev Ha]%sorted_advancing. unfold waitUntilReady.
  destruct (Z.ltb_spec timeout 0). { intros [-> [= <- <-]]. split; [done|]. by exists false. }
  intros H1. step_ask H1 start. apply clock_now in Ha as [Hlt Ha].
  apply (wait_ready_ends _ _ start) in H1 as (-> & b & -> & Hb); [|done|lia|lia].
  split; [done|]. exists b. split; [done|]. intros Hb'. split; [done|]. apply (ready_app [_]). auto.
Qed.

(** ** Feedback

    The endpoint's callback publishes snapshots; a control loop takes the
    newest one that it has not seen. *)
Inductive feedback_op := Publish (s : FciArmStatusSnapshot) | TakeState.

(** What the loop gets, in order. *)
Fixpoint deliveries (ops : list feedback_op) (f : Feedback) : list (option ArmState) :=
  match ops with
  | [] => []
  | Publish s :: ops' => deliveries ops' (s_onArmStatus s f)
  | TakeState :: ops' => let '(d, f') := s_takeLatestState f in d :: deliveries ops' f'
  end.

(** The specification: a mailbox with one place, which a new letter
    overwrites. *)
Fixpoint mailbox (place : option ArmState) (ops : list feedback_op) : list (option ArmState) :=
  match ops with
  | [] => []
  | Publish s :: ops' => mailbox (Some (snap_state s)) ops'
  | TakeState :: ops' => place :: mailbox None ops'
  end.

(** The generations of the published snapshots. *)
Fixpoint generations (ops : list feedback_op) : list Z :=
  match ops with
  | [] => []
  | Publish s :: ops' => snap_generation s :: generations ops'
  | TakeState :: ops' => generations ops'
  end.

(** What is published and not yet taken. *)
Definition pending (f : Feedback) : option ArmState :=
  if (m_latest_state_generation f =? 0) || (m_latest_state_generation f =? m_consumed_state_generation f)
  then None else m_latest_state f.

Lemma takeLatestState_spec f :
  exists f', s_takeLatestState f = (pending f, f') /\ pending f' = None /\
    m_latest_state_generation f' = m_latest_state_generation f /\
    (m_consumed_state_generation f' = m_latest_state_generation f \/ f' = f).
Proof.
  unfold s_takeLatestState, pending. destruct (_ || _) eqn:Hg; eexists; (split; [reflexivity|]).
  - rewrite Hg. auto.
  - cbn. rewrite Z.eqb_refl, orb_true_r. auto.
Qed.

Lemma deliveries_mailbox ops f :
  0 <= m_consumed_state_generation f <= m_latest_state_generation f ->
  StronglySorted Z.lt (m_latest_state_generation f :: generations ops) ->
  deliveries ops f = mailbox (pending f) ops.
Proof.
  revert f. induction ops as [|[s|] ops IH]; intros f Hf Hs; [done| |]; cbn [deliveries mailbox].
  - cbn [generations] in Hs. apply StronglySorted_inv in Hs as [Hs Hlt]. apply Forall_inv in Hlt.
    rewrite IH; [|cbn; lia|done]. f_equal. unfold pending. cbn.
    destruct (Z.eqb_spec (snap_generation s) 0); [lia|].
    by destruct (Z.eqb_spec (snap_generation s) (m_consumed_state_generation f)); [lia|].
  - destruct (takeLatestState_spec f) as (f' & -> & Hp & Hg & Hc). rewrite IH, Hp; [done| |].
    + rewrite Hg. destruct Hc as [-> | ->]; lia.
    + by rewrite Hg.
Qed.

(** C32: feedback is a mailbox with one place.  If the endpoint numbers its
    snapshots upwards from 1, then whatever the order of publications and
    takes, each take of a control loop gets the newest state published since
    the last take, and nothing if there is none: no state is handled twice, no
    older state after a newer one, and none is missed but by a newer one. *)
Theorem feedback_mailbox ops :
  StronglySorted Z.lt (0 :: generations ops) -> deliveries ops feedback0 = mailbox None ops.
Proof. intros Hs. by apply (deliveries_mailbox ops feedback0). Qed.

Definition sample_state (seq : Z) : ArmState := {|
  as_time := 0; as_seq := seq; as_mode := 0; as_source_timestamp_us := 0; as_errors := 0;
  as_q := []; as_dq := []; as_tau := []; as_base_gravity := []; as_O_T_EE := []; as_F_ext := [];
  as_gripper_q := 0; as_gripper_dq := 0; as_gripper_tau := 0 |}.
Definition sample_snapshot (generation : Z) : FciArmStatusSnapshot := {|
  snap_state := sample_state generation; snap_last_sdk_timestamp_us := 0; snap_generation := generation |}.

Lemma feedback_mailbox_witness :
  deliveries [TakeState; Publish (sample_snapshot 1); Publish (sample_snapshot 2); TakeState; TakeState] feedback0 =
  [None; Some (sample_state 2); None].
Proof.
  assert (StronglySorted Z.lt (0 :: generations
    [TakeState; Publish (sample_snapshot 1); Publish (sample_snapshot 2); TakeState; TakeState])) as Hs.
  { repeat constructor. }
  exact (feedback_mailbox _ Hs).
Defined.

(** ** Concrete runs

    A device that acknowledges everything, but rejects the operation [bad]; the
    clock advances by a millisecond per reading. *)

Definition device_info : DeviceInfo := {|
  fi_protocol_version := kSupportedProtocolVersion;
  fi_firmware_version := {| m_major := 1; m_minor := 0; m_patch := 0 |};
  fi_board_name := []; fi_custom_name := []; fi_serial_number := [];
  fi_firmware_type := kUnknownFirmware; fi_command_capabilities := 2 |}.

Definition arm_answer (bad : option PublicCall) (R : Type) (c : arm_call R) : Z -> R * Z :=
  match c in arm_call R return Z -> R * Z with
  | EpInitialize | EpAttachDirectTransport | EpSetSink | EpSetCallbacks | EpStart => fun s => (kOk, s)
  | EpStop => fun s => (tt, s)
  | EpSubmit c => fun s => ((match bad, c with
      | Some (CallHome _), CallHome _ => kQueueFull
      | Some (CallSetArmControlMode _ _), CallSetArmControlMode _ _ => kQueueFull
      | _, _ => kOk end, 1), s)
  | EpWait _ _ => fun s => ((kOk, Some result0), s)
  | EpTake _ => fun s => ((kOk, Some result0), s)
  | EpTakeDeviceInfo _ => fun s => ((kOk, Some result0, Some device_info), s)
  | EpTakeDeviceSettings _ => fun s => ((kOk, Some result0, Some settings0), s)
  | EpTakeMotorRegister _ => fun s => ((kOk, Some result0, Some 0), s)
  | EpControlLease => fun s => ({| l_state := kHeld; l_status := kOk; l_domain_status := 0; l_token := 1; l_granted_timeout_ms := 2000 |}, s)
  | EpSend _ _ => fun s => (kOk, s)
  | TrSetReceiveCallback _ | SleepMs _ | StoreRunning _ | StoreStop _ | SignalWake | ClearWake
  | Acquire | AdvanceGeneration | DrainSends | GateLeave => fun s => (tt, s)
  | TrLastError => fun s => (0, s)
  | TrConnectionState => fun s => (TransportState.kConnected, s)
  | ClockNs | NowUs => fun s => (s, s + 1000000)
  | LoadRunning | TryAcquire | GateEnter _ => fun s => (true, s)
  | LoadStop => fun s => (false, s)
  | CurrentGeneration => fun s => (2, s)
  | TakeLatestState => fun s => (None, s)
  | Callback _ => fun s => (None, s)
  end.

Definition arm_run {A} (bad : option PublicCall) (p : arm A) :=
  interp (arm_answer bad) (p (arm_with_info device_info arm0)) 0.

Lemma arm_run_runs {A} bad (p : arm A) s' r :
  snd (arm_run bad p) = (s', r) ->
  runs (p (arm_with_info device_info arm0)) (fst (arm_run bad p)) (s', r).
Proof. intros <-. apply (interp_runs (arm_answer bad)). Qed.

Example arm_runs :
  snd (snd (arm_run None arm_home)) = inr tt /\
  snd (snd (arm_run (Some (CallHome 0)) arm_home)) =
    inl (CommandException "Home failed (endpoint=2)") /\
  snd (snd (arm_run None (s_prepareControlLocked TJointPosVel))) = inr 2 /\
  snd (snd (arm_run None (s_prepareControlLocked TJointVel))) =
    inl (CommandException "firmware does not advertise this arm command capability") /\
  snd (snd (arm_run None (open_arm false (fun _ => EmptyString) []))) = inr tt /\
  snd (snd (arm_run None (waitUntilReady 3 1))) = inr (Some true).
Proof. by vm_compute. Qed.

(** The arm refuses to home; the lease is shortened all the same. *)
Lemma home_restores_lease_witness :
  snd (snd (arm_run (Some (CallHome 0)) arm_home)) =
    inl (CommandException "Home failed (endpoint=2)") /\
  exists l', fst (arm_run (Some (CallHome 0)) arm_home) = stopping ++ l' /\
    ((exists m, not_acknowledged extend_lease 1500 l' /\ m = m_device_info arm0) \/
     exists l1 l2 l3, l' = l1 ++ l2 ++ l3 /\ acknowledged extend_lease 1500 l1 /\
       (acknowledged normal_lease 1500 l3 \/ not_acknowledged normal_lease 1500 l3)).
Proof.
  split; [by vm_compute|].
  destruct (home_restores_lease _ _ _ _ (arm_run_runs (Some (CallHome 0)) arm_home _ _ eq_refl))
    as (_ & l' & Hl & H).
  exists l'. split; [exact Hl|].
  destruct H as [(m & _ & Hn)|(l1 & l2 & l3 & Hl' & Ha & H)]; [left; by eexists|].
  right. exists l1, l2, l3. split; [exact Hl'|]. split; [exact Ha|].
  destruct H as [(_ & _ & H)|[(_ & _ & _ & H)|(_ & _ & _ & H)]]; [by left|by right|exact H].
Defined.

Lemma control_prepared_witness :
  m_current_mode (fst (snd (arm_run None (s_prepareControlLocked TJointPosVel)))) = Some kPositionVelocity /\
  exists l1 l2, fst (arm_run None (s_prepareControlLocked TJointPosVel)) = stopping ++ l1 ++ l2 ++
    [Event (StoreStop false) tt; Event (StoreRunning true) tt; Event CurrentGeneration 2] /\
    acknowledged pc_mode 750 l1.
Proof.
  split; [by vm_compute|].
  destruct (control_prepared _ _ _ _ _ (arm_run_runs None (s_prepareControlLocked TJointPosVel) _ (inr 2) eq_refl))
    as (_ & _ & l1 & l2 & Hl & Ha & _).
  exists l1, l2. split; [exact Hl|exact Ha].
Defined.

Lemma open_identifies_first_witness :
  exists l1 l2 l3,
    fst (arm_run None (open_arm false (fun _ => EmptyString) [])) = l1 ++ l2 ++ l3 /\
    identified [] device_info l1 /\ acknowledged open_lease 1500 l2.
Proof.
  exact (proj1 (proj2 (open_identifies_first false (fun _ => EmptyString) [] _ _ _ _
    (arm_run_runs None (open_arm false (fun _ => EmptyString) []) _ (inr tt) eq_refl))) eq_refl).
Defined.

Lemma sample_wait_readings fuel : readings (fst (arm_run None (waitUntilReady (S fuel) 1))) = [0].
Proof. by vm_compute. Qed.

Lemma waitUntilReady_ends_witness :
  exists b, snd (snd (arm_run None (waitUntilReady (S (Z.to_nat 1000000)) 1))) = inr (Some b).
Proof.
  assert (StronglySorted Z.lt (readings (fst (arm_run None (waitUntilReady (S (Z.to_nat 1000000)) 1))))) as Hs.
  { rewrite sample_wait_readings. repeat constructor. }
  assert (1 * 1000000 < Z.of_nat (S (Z.to_nat 1000000))) as Hf by lia.
  destruct (waitUntilReady_ends _ _ _ _ _ _ Hf Hs
    (arm_run_runs None (waitUntilReady (S (Z.to_nat 1000000)) 1) _ _ (surjective_pairing _))) as (_ & b & Hb & _).
  exists b. exact Hb.
Defined.

(** ** A device that is not there

    [waitUntilReady] over the endpoint of [EndpointOps.v], when nobody answers:
    the state is the endpoint and the clock in milliseconds.  A wait that ends
    before its operation leaves the operation in the table. *)

Definition owner_pass (s : FciWirelinkEndpoint * Z) : FciWirelinkEndpoint * Z :=
  let '(e, t) := s in
  let e1 :=
    match m_active_operation e with
    | Some i =>
        let o := default slot0 (m_operations e !! i) in
        if o_submitted_at_ms o + o_timeout_ms o <=? t
        then s_finalize t i (completed_with WL_RPC_TIMED_OUT) None e else e
    | None => e
    end in
  (snd (s_progress accept_rpc false false t t t e1), t).

(** A wait, in steps of ten milliseconds, until the operation is over. *)
Fixpoint wait_steps (count : nat) (id : Z) (s : FciWirelinkEndpoint * Z) : FciWirelinkEndpoint * Z :=
  match count, s_findSlot id (fst s) with
  | S count', Some i =>
      if s_terminal (o_state (default slot0 (m_operations (fst s) !! i))) then s
      else wait_steps count' id (owner_pass (fst s, snd s + 10))
  | _, _ => s
  end.

Definition silent_answer (R : Type) (c : arm_call R)
    : FciWirelinkEndpoint * Z -> R * (FciWirelinkEndpoint * Z) :=
  match c in arm_call R return FciWirelinkEndpoint * Z -> R * (FciWirelinkEndpoint * Z) with
  | EpSubmit c => fun s => let '(r, e) := run_call false (snd s) c (fst s) in (r, owner_pass (e, snd s))
  | EpWait id wait => fun s =>
      let s' := wait_steps (Z.to_nat (wait / 10)) id s in (waitOperation id wait (fst s) (fst s'), s')
  | EpTake id => fun s => let '((st, r, _), e) := takeOperation id (fst s) in ((st, r), (e, snd s))
  | EpControlLease => fun s => (controlLease (fst s), s)
  | TrConnectionState => fun s => (TransportState.kConnected, s)
  | ClockNs => fun s => (snd s * 1000000, s)
  | SleepMs ms => fun s => (tt, owner_pass (fst s, snd s + ms))
  | c => fun s => (fst (arm_answer None _ c 0), s)
  end.

(** [count] waits of [ms] milliseconds, then ten seconds of rest for every
    operation to end, then an operation. *)
Fixpoint waits_then_home (count : nat) (ms : Z) : arm unit :=
  match count with
  | O => _ ← ask (SleepMs 10000); require (CallHome 1000) 1500 "Home"
  | S count' => _ ← waitUntilReady 40 ms; waits_then_home count' ms
  end.
Definition silent_run (count : nat) (ms : Z) : exception + unit :=
  snd (snd (interp silent_answer (waits_then_home count ms arm0) (run_started, 0))).

(** A wait gives up its last request before the request can be answered or time
    out, and does not take its result later: seven waits of a second fill the
    table for good.  Six do not, nor do seven that end with their request. *)
Example waits_fill_table :
  silent_run 7 1000 = inl (CommandException "Home failed (endpoint=2)") /\
  silent_run 6 1000 = inl (CommandException "Home failed (endpoint=10, domain=0, link=0)") /\
  silent_run 7 500 = inl (CommandException "Home failed (endpoint=10, domain=0, link=0)").
Proof. by vm_compute. Qed.
