(* ===== verification/ArmConnect.v ===== *)
(** * Connecting to an arm

    [src/Arm.cpp]: [Arm::connect] by a selector or a descriptor, which reports
    every failure as a value, and [Arm::create] by a URI, which returns nothing
    then (its messages to stderr are left out).  Both construct the object of
    [ArmImpl.v] over a transport.  The other members forward to it. *)

From Stdlib Require Import String Ascii.
From stdpp Require Import strings.
From S2P Require Import Prelude UsbUri DeviceTypes Endpoint EndpointOps EndpointCalls Commands Prog Discovery ArmImpl ArmProps.

Open Scope string_scope.
Open Scope Z_scope.
Open Scope list_scope.

(** ** Data *)

Module ArmError.
Inductive ArmConnectionError :=
| kNone | kEnumerationFailed | kInvalidSelector | kDeviceNotFound | kAmbiguous | kPermissionDenied
| kDeviceBusy | kDeviceDisconnected | kIncompatibleDevice | kControlUnavailable | kTransportError
| kProtocolError.
End ArmError.
Abbreviation ArmConnectionError := ArmError.ArmConnectionError.
#[global] Instance ArmConnectionError_eq_dec : EqDecision ArmConnectionError.
Proof. solve_decision. Defined.

Definition armConnectionErrorMessage (e : ArmConnectionError) : string :=
  match e with
  | ArmError.kNone => "no error"
  | ArmError.kEnumerationFailed => "USB enumeration failed"
  | ArmError.kInvalidSelector => "invalid device selector"
  | ArmError.kDeviceNotFound => "device not found"
  | ArmError.kAmbiguous => "selector matches multiple devices"
  | ArmError.kPermissionDenied => "USB device permission denied"
  | ArmError.kDeviceBusy => "USB interface is busy"
  | ArmError.kDeviceDisconnected => "USB device disconnected"
  | ArmError.kIncompatibleDevice => "incompatible device"
  | ArmError.kControlUnavailable => "device control is unavailable"
  | ArmError.kTransportError => "transport connection failed"
  | ArmError.kProtocolError => "protocol connection failed"
  end.

(** [ar_arm]: the private state of the arm, if there is one. *)
Record ArmConnectionResult := {
  ar_arm : option ArmImpl;
  ar_device : option DeviceDescriptor;
  ar_candidates : list DeviceDescriptor;
  ar_error : ArmConnectionError;
  ar_system_error : Z;
  ar_message : text
}.
Definition arm_failed (e : ArmConnectionError) (system : Z) (message : text)
    (device : option DeviceDescriptor) (candidates : list DeviceDescriptor) : ArmConnectionResult := {|
  ar_arm := None; ar_device := device; ar_candidates := candidates; ar_error := e;
  ar_system_error := system; ar_message := message |}.

(** ** Calls *)

Inductive transport_kind :=
| UsbBulk (device : UsbBulkDeviceInfo)
| SerialPort (path : text)
| UdpSocket (host : text) (port : Z).

Inductive connect_call : Type -> Type :=
| OnDiscovery {R} (c : discovery_call R) : connect_call R
| OnArm {R} (c : arm_call R) : connect_call R
| NewTransport (k : transport_kind) : connect_call (option exception).  (* what its constructor throws *)

Definition on_discovery {A} : prog discovery_call A -> prog connect_call A := lift (@OnDiscovery).
Definition on_arm {A} : prog arm_call A -> prog connect_call A := lift (@OnArm).

(** ** Errors *)

Section connect_arm.
Variables (codes : usb_errors) (system_message : Z -> string).

Definition s_connectionError (e : DeviceDiscoveryError) : ArmConnectionError :=
  match e with
  | DiscoveryError.kNone => ArmError.kNone
  | DiscoveryError.kEnumerationFailed => ArmError.kEnumerationFailed
  | DiscoveryError.kInvalidSelector => ArmError.kInvalidSelector
  | DiscoveryError.kDeviceNotFound | DiscoveryError.kTimeout => ArmError.kDeviceNotFound
  | DiscoveryError.kAmbiguous => ArmError.kAmbiguous
  end.

(** The overload on [std::error_code]. *)
Definition system_connectionError (e : Z) : ArmConnectionError :=
  if e =? PermissionDenied codes then ArmError.kPermissionDenied
  else if e =? InterfaceBusy codes then ArmError.kDeviceBusy
  else if (e =? DeviceDisconnected codes) || (e =? UsbDeviceNotFound codes)
  then ArmError.kDeviceDisconnected
  else ArmError.kTransportError.

(** [what()]; a callback's exception cannot occur here. *)
Definition what (e : exception) : string :=
  match e with
  | NetworkException m _ | ProtocolException m | IncompatibleVersionException m | ControlException m
  | CommandException m => m
  | CallbackException => ""
  end.

(** The [catch] clauses. *)
Definition caught (device : DeviceDescriptor) (e : exception) : ArmConnectionResult :=
  let fail error system := arm_failed error system (str (what e)) (Some device) [] in
  match e with
  | IncompatibleVersionException _ => fail ArmError.kIncompatibleDevice 0
  | NetworkException _ system =>
      fail (if system =? 0 then ArmError.kTransportError else system_connectionError system) system
  | CommandException _ => fail ArmError.kControlUnavailable 0
  | ProtocolException _ | ControlException _ | CallbackException => fail ArmError.kProtocolError 0
  end.

(** What the descriptor alone rules out. *)
Definition known_error (d : DeviceDescriptor) : ArmConnectionError :=
  match dd_access d with
  | Access.kPermissionDenied => ArmError.kPermissionDenied
  | Access.kBusy => ArmError.kDeviceBusy
  | Access.kDisconnected => ArmError.kDeviceDisconnected
  | _ =>
      match dd_compatibility d with
      | Compatibility.kUnknown | Compatibility.kCompatible => ArmError.kNone
      | _ => ArmError.kIncompatibleDevice
      end
  end.

(** ** Connecting *)

(** A new [ArmImpl] over a transport; all three transports use the link
    library directly. *)
Definition new_arm (k : transport_kind) (expected_serial : bytes)
    : prog connect_call (ArmImpl * (exception + unit)) :=
  thrown ← call (NewTransport k);
  match thrown with
  | Some e => mret (arm0, inl e)
  | None => on_arm (open_arm true system_message expected_serial arm0)
  end.

Definition connect_arm_device (d : DeviceDescriptor) : prog connect_call ArmConnectionResult :=
  let e := known_error d in
  if negb (bool_decide (e = ArmError.kNone))
  then mret (arm_failed e (dd_system_error d)
         (match dd_error_message d with [] => str (armConnectionErrorMessage e) | m => m end) (Some d) [])
  else
    made ← new_arm (UsbBulk (dd_usb d)) (m_serial_number (dd_usb d));
    match snd made with
    | inl e => mret (caught d e)
    | inr _ => mret {|
        ar_arm := Some (fst made); ar_device := Some d; ar_candidates := []; ar_error := ArmError.kNone;
        ar_system_error := 0; ar_message := [] |}
    end.

Definition connect_arm (sel : DeviceSelector) : prog connect_call ArmConnectionResult :=
  found ← on_discovery (discoverDevices codes {|
    do_probe := is_some (ds_custom_name sel) || is_some (ds_firmware_type sel);
    do_probe_timeout := 1500 |});
  if negb (bool_decide (dr_error found = DiscoveryError.kNone))
  then mret (arm_failed (s_connectionError (dr_error found)) (dr_system_error found)
         (str (deviceDiscoveryErrorMessage (dr_error found))) None [])
  else
    let selection := selectDevice (dr_devices found) sel in
    match (if selected selection then sl_device selection else None) with
    | Some d => connect_arm_device d
    | None =>
        mret (arm_failed (s_connectionError (sl_error selection)) 0
          (str (deviceDiscoveryErrorMessage (sl_error selection))) None (sl_candidates selection))
    end.

(** [connect()]. *)
Definition any_device : DeviceSelector :=
  {| ds_serial_number := None; ds_custom_name := None; ds_firmware_type := None |}.
Definition connect_any : prog connect_call ArmConnectionResult := connect_arm any_device.

(** ** URIs *)

Definition is_space (c : Z) : bool := (c =? 32) || ((9 <=? c) && (c <=? 13)).
Fixpoint skip_space (t : text) : text :=
  match t with c :: t' => if is_space c then skip_space t' else t | [] => [] end.

(** [std::stoul]: white space, a sign, the longest run of digits; the rest is
    ignored, a negative number is reduced modulo 2^64.  [None]: it throws. *)
Definition stoul (t : text) : option Z :=
  let t := skip_space t in
  let '(negative, t) :=
    match t with
    | c :: t' => if c =? chr "-" then (true, t') else if c =? chr "+" then (false, t') else (false, t)
    | [] => (false, [])
    end in
  match digits 10 t 0 false with
  | Some (v, _) => if v <? 2 ^ 64 then Some (if negative : bool then u64 (- v) else v) else None
  | None => None
  end.

(** The text before and after the last colon. *)
Fixpoint split_last (c : Z) (t : text) : option (text * text) :=
  match t with
  | [] => None
  | d :: t' =>
      match split_last c t' with
      | Some (a, b) => Some (d :: a, b)
      | None => if d =? c then Some ([], t') else None
      end
  end.

Inductive uri_target :=
| UsbTarget
| TransportTarget (k : transport_kind)
| NoTarget.

Definition udp_target (host : text) : uri_target :=
  match split_last (chr ":") host with
  | Some (host, port) =>
      match stoul port with
      | None => NoTarget
      | Some p => match host with [] => NoTarget | _ => TransportTarget (UdpSocket host (u16 p)) end
      end
  | None => match host with [] => NoTarget | _ => TransportTarget (UdpSocket host 5080) end
  end.

Definition uri_of (uri : text) : uri_target :=
  if starts_with uri (str "usb://") then UsbTarget
  else if starts_with uri (str "serial://") then
    match drop 9 uri with [] => NoTarget | path => TransportTarget (SerialPort path) end
  else if starts_with uri (str "udp://") then udp_target (drop 6 uri)
  else NoTarget.

(** A device that was found on the bus, not probed. *)
Definition usb_device (device : UsbBulkDeviceInfo) : DeviceDescriptor := {|
  dd_usb := device; dd_device_info := None; dd_access := Access.kNotProbed;
  dd_compatibility := Compatibility.kUnknown; dd_system_error := 0; dd_error_message := [];
  dd_display_name := m_display_name device |}.

(** [create]; the state of the arm, if it returns one. *)
Definition create_arm (uri : text) : prog connect_call (option ArmImpl) :=
  match uri_of uri with
  | NoTarget => mret None
  | TransportTarget k =>
      made ← new_arm k [];
      mret (match snd made with inl _ => None | inr _ => Some (fst made) end)
  | UsbTarget =>
      match s_parseSelector uri with
      | None => mret None
      | Some _ =>
          listed ← on_discovery (call EnumerateUsb);
          match sr_device (resolveUsbBulkDevice uri listed) with
          | None => mret None
          | Some device => r ← connect_arm_device (usb_device device); mret (ar_arm r)
          end
      end
  end.
End connect_arm.

(** ** Members

    [arm]: the implementation, or none after a move. *)
Definition member_connectionState (arm : option ArmImpl) : prog arm_call ArmConnectionState :=
  match arm with
  | None => mret ArmConnection.kClosed
  | Some s => out ← connectionState s;
      mret (match snd out with inr st => st | inl _ => ArmConnection.kClosed end)
  end.
Definition member_waitUntilReady (fuel : nat) (timeout : Z) (arm : option ArmImpl)
    : prog arm_call (option bool) :=
  match arm with
  | None => mret (Some false)
  | Some s => out ← waitUntilReady fuel timeout s;
      mret (match snd out with inr b => b | inl _ => Some false end)
  end.

(** ** Theorems *)

(** The operations of a trace that could disturb another controller. *)
Definition disturbing (ev : event connect_call) : bool :=
  match ev with Event c r => match c in connect_call R return R -> bool with
    | OnArm c => fun r => disturbs (Event c r) | _ => fun _ => false end r end.

Lemma on_discovery_calm {A} (p : prog discovery_call A) l a :
  runs (on_discovery p) l a -> count_calls disturbing l = 0%nat.
Proof.
  intros (l' & -> & _)%lift_runs. apply count_calls_none, Forall_map, List.Forall_forall. by intros [R c r] _.
Qed.

Lemma disturbing_lift l : count_calls disturbing (map (lift_event (@OnArm)) l) = count_calls disturbs l.
Proof. induction l as [|[R c r] l IH]; [done|]. cbn. by rewrite IH. Qed.

Lemma careful_count serial info l : careful serial info l -> (count_calls disturbs l <= 1)%nat.
Proof.
  intros [Hl|(l1 & l2 & l3 & -> & H1 & H3 & _ & Ha)]; [by rewrite calm_count; [lia|]|].
  rewrite !count_calls_app, (calm_count l1), (calm_count l3) by done.
  destruct Ha as [Ha%acknowledged_lease|Ha%not_acknowledged_lease]; lia.
Qed.

(** The trace of [new_arm]. *)
Definition arm_opened (k : transport_kind) (serial : bytes) (s : ArmImpl) (l : list (event connect_call)) : Prop :=
  exists l', l = Event (NewTransport k) None :: map (lift_event (@OnArm)) l' /\
    exists l1 l2 l3, l' = l1 ++ l2 ++ l3 /\ identified serial (m_device_info s) l1 /\
      acknowledged open_lease 1500 l2.

Section theorems.
Variables (codes : usb_errors) (system_message : Z -> string).

Lemma new_arm_run k serial l s r :
  runs (new_arm system_message k serial) l (s, r) ->
  (count_calls disturbing l <= 1)%nat /\ (r = inr tt -> arm_opened k serial s l).
Proof.
  unfold new_arm. intros H. step_call H thrown. destruct thrown as [e|].
  { destruct H as [-> [= <- <-]]. split; [cbn; lia|done]. }
  apply lift_runs in H as (l' & -> & (Hc & Hok & _)%open_run). split.
  - cbn. rewrite disturbing_lift. by apply careful_count in Hc.
  - intros Hr. exists l'. split; [done|by apply Hok].
Qed.

Lemma known_error_none d :
  known_error d = ArmError.kNone -> dd_access d <> Access.kPermissionDenied /\
  dd_access d <> Access.kBusy /\ dd_access d <> Access.kDisconnected.
Proof. unfold known_error. by destruct (dd_access d). Qed.

Lemma caught_error d e : ar_arm (caught codes d e) = None /\ ar_error (caught codes d e) <> ArmError.kNone.
Proof.
  destruct e; cbn; try done. split; [done|]. unfold system_connectionError. repeat case_match; done.
Qed.

(** What a connection to a descriptor's device comes to. *)
Lemma connect_arm_device_run d l r :
  runs (connect_arm_device codes system_message d) l r ->
  (is_Some (ar_arm r) <-> ar_error r = ArmError.kNone) /\ (count_calls disturbing l <= 1)%nat /\
  (known_error d <> ArmError.kNone -> l = [] /\ ar_error r = known_error d) /\
  (forall s, ar_arm r = Some s ->
     ar_device r = Some d /\ arm_opened (UsbBulk (dd_usb d)) (m_serial_number (dd_usb d)) s l).
Proof.
  unfold connect_arm_device. destruct (bool_decide (known_error d = _)) eqn:Hk; cbn [negb].
  2:{ apply bool_decide_eq_false in Hk. intros [-> <-]. cbn. split_and!; try done; cbn; lia. }
  apply bool_decide_eq_true in Hk. rewrite Hk.
  intros (l1 & l2 & [s o] & -> & [Hc Hok]%new_arm_run & H)%runs_bind. cbn [snd fst] in H.
  destruct o as [e|[]].
  - destruct H as [-> <-]. rewrite app_nil_r. destruct (caught_error d e) as [Hn He]. rewrite Hn. by split_and!.
  - destruct H as [-> <-]. rewrite app_nil_r. cbn. split_and!; try done.
    intros s' [= <-]. split; [done|]. by apply Hok.
Qed.

(** Connecting yields an arm, or an error and no arm.  Whatever happens,
    [connect] returns normally; its result has an arm exactly when it reports no
    error.  The arm is that of a device which matched the selector, alone among
    those discovered, and which then identified itself over the arm's own
    connection, with a supported protocol version and a serial number that does
    not contradict the USB one, before the control lease was acquired and
    granted; and on every path, failures included, at most one operation that
    could disturb another controller is submitted. *)
Theorem arm_connected sel l r :
  runs (connect_arm codes system_message sel) l r ->
  (is_Some (ar_arm r) <-> ar_error r = ArmError.kNone) /\ (count_calls disturbing l <= 1)%nat /\
  (forall s, ar_arm r = Some s -> exists d k1 k2 l1 l2,
     ar_device r = Some d /\ matches d sel /\ Forall (fun d' => ~ matches d' sel) (k1 ++ k2) /\
     l = l1 ++ l2 /\ arm_opened (UsbBulk (dd_usb d)) (m_serial_number (dd_usb d)) s l2 /\
     exists found, runs (on_discovery (discoverDevices codes {|
         do_probe := is_some (ds_custom_name sel) || is_some (ds_firmware_type sel);
         do_probe_timeout := 1500 |})) l1 found /\ dr_devices found = k1 ++ d :: k2).
Proof.
  unfold connect_arm. intros (l1 & l2 & found & -> & Hl1 & H)%runs_bind.
  rewrite count_calls_app, (on_discovery_calm _ _ _ Hl1).
  destruct (bool_decide (dr_error found = _)) eqn:Hf; cbn [negb] in H.
  2:{ destruct H as [-> <-]. apply bool_decide_eq_false in Hf. cbn. split_and!; try done; try (cbn; lia).
      split; [by intros [? ?]|]. by destruct (dr_error found). }
  destruct (selectDevice_spec (dr_devices found) sel) as (Hsel & _ & _).
  destruct (if selected _ then _ else _) as [d|] eqn:Hd.
  2:{ destruct H as [-> <-]. cbn. split_and!; try done; try (cbn; lia).
      split; [by intros [? ?]|]. intros He. exfalso. clear -He Hd. unfold selected, selectDevice in *.
      destruct (_ || _); [done|]. by destruct (collect _ _ _) as [|x [|y k]]. }
  assert (sl_device (selectDevice (dr_devices found) sel) = Some d) as Hs by by destruct (selected _).
  destruct (proj1 (Hsel d) Hs) as (_ & k1 & k2 & Hk & Hm & Hno).
  apply connect_arm_device_run in H as (Hiff & Hc & _ & Harm). split_and!; [done|lia|].
  intros s Hr. destruct (Harm s Hr) as [Hdev Ho]. exists d, k1, k2, l1, l2. split_and!; try done. by exists found.
Qed.
End theorems.

(** A port in range is the one that is used... *)
Lemma udp_port host port p :
  host <> [] -> Forall (fun c => c <> chr ":") port -> digits 10 port 0 false = Some (p, []) ->
  skip_space port = port -> (forall c t, port = c :: t -> c <> chr "-" /\ c <> chr "+") -> 0 <= p < 65536 ->
  uri_of (str "udp://" ++ host ++ [chr ":"] ++ port) = TransportTarget (UdpSocket host p).
Proof.
  intros Hh Hport Hd Hs Hsign Hp.
  assert (uri_of (str "udp://" ++ host ++ [chr ":"] ++ port) = udp_target (host ++ [chr ":"] ++ port)) as -> by done.
  assert (split_last (chr ":") port = None) as Hnone.
  { clear -Hport. induction Hport as [|c t Hc _ IH]; [done|]. cbn. rewrite IH.
    by destruct (Z.eqb_spec c (chr ":")). }
  assert (split_last (chr ":") (host ++ chr ":" :: port) = Some (host, port)) as Hsplit.
  { clear -Hnone. induction host as [|c t IH]; cbn [app split_last]; [by rewrite Hnone|].
    by rewrite IH. }
  unfold udp_target. cbn [app]. rewrite Hsplit. unfold stoul. rewrite Hs. destruct port as [|c t]; [done|].
  destruct (Hsign c t eq_refl) as [H1 H2].
  destruct (Z.eqb_spec c (chr "-")); [done|]. destruct (Z.eqb_spec c (chr "+")); [done|].
  rewrite Hd. destruct (Z.ltb_spec p (2 ^ 64)); [|lia]. destruct host; [done|]. do 2 f_equal.
  apply Z.mod_small. cbn. lia.
Qed.

(** ... but one out of range is reduced, and what follows the digits ignored. *)
Example udp_port_reduced :
  uri_of (str "udp://h:70000") = TransportTarget (UdpSocket (str "h") 4464) /\
  uri_of (str "udp://h:80x") = TransportTarget (UdpSocket (str "h") 80) /\
  uri_of (str "udp://h:-1") = TransportTarget (UdpSocket (str "h") 65535) /\
  uri_of (str "udp://h:x") = NoTarget.
Proof. by vm_compute. Qed.

(** *** A run: one device on the bus, which answers and grants the lease *)

Definition connect_answer (R : Type) (c : connect_call R) : Z -> R * Z :=
  match c in connect_call R return Z -> R * Z with
  | OnDiscovery c => sample_answer _ c
  | OnArm c => arm_answer None _ c
  | NewTransport _ => fun now => (None, now)
  end.

Definition sample_connect (sel : DeviceSelector) :=
  interp connect_answer (connect_arm sample_codes (fun _ => "error") sel) 0.

Example connect_arm_runs :
  ar_error (snd (sample_connect any_device)) = ArmError.kNone /\
  ar_error (snd (sample_connect (bySerial (str "other")))) = ArmError.kDeviceNotFound /\
  ar_message (snd (sample_connect (bySerial (str "other")))) = str "device not found".
Proof. by vm_compute. Qed.

Lemma arm_connected_witness :
  exists s d l1 l2, ar_arm (snd (sample_connect any_device)) = Some s /\
    fst (sample_connect any_device) = l1 ++ l2 /\
    arm_opened (UsbBulk (dd_usb d)) (m_serial_number (dd_usb d)) s l2.
Proof.
  assert (ar_arm (snd (sample_connect any_device)) = Some (arm_with_settings settings0 (arm_with_info device_info arm0)))
    as Hs by (vm_compute; reflexivity).
  destruct (arm_connected sample_codes (fun _ => "error") any_device (fst (sample_connect any_device))
    (snd (sample_connect any_device)) (interp_runs connect_answer _ 0)) as (_ & _ & H).
  destruct (H _ Hs) as (d & k1 & k2 & l1 & l2 & _ & _ & _ & Hl & Ho & _).
  eexists _, d, l1, l2. split; [exact Hs|]. split; [exact Hl|exact Ho].
Defined.
