(* ===== verification/ArmThreads.v ===== *)
(** * The arm: control sessions and other threads

    The functions of [ArmImpl.v] run in several threads over one control gate.
    A system is the gate and a list of threads, each an operation of the arm with
    what is left of its program; a step lets one thread make its next call, or
    starts a thread for any operation.  The gate is the interface of
    [ControlGeneration.v] ([GateRefinement.v]): entering checks the generation
    and counts the submission, [invalidate] advances the generation and then
    waits until no submission is inside.  Every other call may be answered in any
    way, and the mutexes of the class are not assumed: every interleaving is
    there. *)

From Stdlib Require Import String.
From S2P Require Import Prelude DeviceTypes UsbUri Endpoint EndpointOps EndpointInv EndpointProps EndpointCalls Commands Prog Discovery ArmImpl.

(** ** The gate *)

Record shared := { sh_generation : Z; sh_inflight : Z }.
Definition shared0 : shared := {| sh_generation := 1; sh_inflight := 0 |}.

(** A call, its answer, and the gate before and after it. *)
Definition gate_call (ev : event arm_call) (m m' : shared) : Prop :=
  match ev with
  | Event c r =>
      match c in arm_call R return R -> Prop with
      | AdvanceGeneration => fun _ =>
          m' = {| sh_generation := u64 (sh_generation m + 1); sh_inflight := sh_inflight m |}
      | DrainSends => fun _ => sh_inflight m = 0 /\ m' = m
      | CurrentGeneration => fun r => r = sh_generation m /\ m' = m
      | GateEnter g => fun entered =>
          if entered : bool then
            g = sh_generation m /\
            m' = {| sh_generation := sh_generation m; sh_inflight := sh_inflight m + 1 |}
          else g <> sh_generation m /\ m' = m
      | GateLeave => fun _ =>
          m' = {| sh_generation := sh_generation m; sh_inflight := sh_inflight m - 1 |}
      | _ => fun _ => m' = m
      end r
  end.

(** The commands for the arm, as opposed to the gripper's. *)
Definition for_arm (c : Command) : bool :=
  match c with
  | CmdGripperMit _ _ | CmdGripperPositionVelocity _ | CmdGripperVelocity _ | CmdGripperPvt _ => false
  | _ => true
  end.

(** ** The threads *)

(** What a thread of the program runs: the member functions of the class that
    other threads may run beside each other. *)
Inductive arm_operation :=
| OpPrepareControl (t : CommandType)
| OpSendControlCommand (c : UserCommand) (generation : Z)  (* a handle's writer *)
| OpControlLoop (fuel : nat) (t : CommandType)
| OpStop | OpHome | OpEnable | OpDrag | OpDisable | OpRecovery
| OpPrepareGripperControl (t : CommandType)
| OpSendGripperCommand (c : UserCommand)
| OpGripperLoop (fuel : nat) (t : CommandType)
| OpReadMotorRegister (joint register : Z)
| OpWriteMotorRegister (joint register value : Z)
| OpStoreParameters (joint : Z)
| OpSetZeroPoint (joint : Z)
| OpSetDeviceSettings (d : DeviceSettings)
| OpSetCustomName (name : bytes)
| OpConnectionState
| OpWaitUntilReady (fuel : nat) (timeout : Z)
| OpClose (direct : bool).

Definition thread_program {A} (p : arm A) (s : ArmImpl) : prog arm_call unit := _ ← p s; mret tt.

Definition program_of (o : arm_operation) : ArmImpl -> prog arm_call unit :=
  match o with
  | OpPrepareControl t => thread_program (s_prepareControlLocked t)
  | OpSendControlCommand c generation => thread_program (s_sendControlCommand c generation)
  | OpControlLoop fuel t => thread_program (s_controlLoop fuel t)
  | OpStop => thread_program arm_stop
  | OpHome => thread_program arm_home
  | OpEnable => thread_program enable
  | OpDrag => thread_program drag
  | OpDisable => thread_program disable
  | OpRecovery => thread_program automaticErrorRecovery
  | OpPrepareGripperControl t => thread_program (s_prepareGripperControl t)
  | OpSendGripperCommand c => thread_program (s_sendGripperCommand c)
  | OpGripperLoop fuel t => thread_program (s_gripperLoop fuel t)
  | OpReadMotorRegister joint register => thread_program (arm_readMotorRegister joint register)
  | OpWriteMotorRegister joint register value =>
      thread_program (arm_writeMotorRegister joint register value)
  | OpStoreParameters joint => thread_program (storeParameters joint)
  | OpSetZeroPoint joint => thread_program (setZeroPoint joint)
  | OpSetDeviceSettings d => thread_program (arm_setDeviceSettings d)
  | OpSetCustomName name => thread_program (setCustomName name)
  | OpConnectionState => thread_program connectionState
  | OpWaitUntilReady fuel timeout => thread_program (waitUntilReady fuel timeout)
  | OpClose direct => thread_program (close_arm direct)
  end.

Record thread := { th_operation : arm_operation; th_left : prog arm_call unit }.
Record system := { sy_shared : shared; sy_threads : list thread }.
Definition system0 : system := {| sy_shared := shared0; sy_threads := [] |}.

(** A label: the thread that made a call, and the call with its answer; a thread
    that starts has none. *)
Definition label : Type := option (nat * event arm_call).

Inductive sys_step : system -> label -> system -> Prop :=
| sys_call m ts i o R (c : arm_call R) (k : R -> prog arm_call unit) r m' :
    ts !! i = Some {| th_operation := o; th_left := Call c k |} ->
    gate_call (Event c r) m m' ->
    sys_step {| sy_shared := m; sy_threads := ts |} (Some (i, Event c r))
      {| sy_shared := m'; sy_threads := <[i := {| th_operation := o; th_left := k r |}]> ts |}
| sys_spawn m ts o s :
    sys_step {| sy_shared := m; sy_threads := ts |} None
      {| sy_shared := m;
         sy_threads := ts ++ [{| th_operation := o; th_left := program_of o s |}] |}.

(** An execution from [s], its labels, and the generations that were current. *)
Inductive exec (s : system) : list label -> list Z -> system -> Prop :=
| exec_nil : exec s [] [sh_generation (sy_shared s)] s
| exec_snoc ls gs s1 l s2 :
    exec s ls gs s1 -> sys_step s1 l s2 ->
    exec s (ls ++ [l]) (gs ++ [sh_generation (sy_shared s2)]) s2.

(** ** What a program has done

    Whether it is inside the gate, how far it got in stopping control, and the
    session that it may send for: none, one whose generation it has not read
    yet, or one it is bound to. *)
Inductive phase := Idle | Stopping | Advanced.
Inductive session := NoSession | Unread | Bound (g : Z).
Record ghost := { gh_inside : bool; gh_phase : phase; gh_session : session }.

Definition ghost_next (gh : ghost) (ev : event arm_call) : option ghost :=
  let at_phase p := Some {| gh_inside := gh_inside gh; gh_phase := p; gh_session := gh_session gh |} in
  match ev with
  | Event c r =>
      match c in arm_call R return R -> option ghost with
      | StoreStop true => fun _ => at_phase Stopping
      | AdvanceGeneration => fun _ => match gh_phase gh with Stopping => at_phase Advanced | _ => None end
      | DrainSends => fun _ => match gh_phase gh with Advanced => at_phase Idle | _ => None end
      | CurrentGeneration => fun r =>
          Some {| gh_inside := gh_inside gh; gh_phase := gh_phase gh;
                  gh_session := match gh_session gh with Unread => Bound r | s => s end |}
      | GateEnter g => fun entered =>
          match gh_inside gh, gh_session gh with
          | false, Bound g' =>
              if g =? g' then Some {| gh_inside := entered; gh_phase := gh_phase gh; gh_session := Bound g' |}
              else None
          | _, _ => None
          end
      | GateLeave => fun _ =>
          if gh_inside gh
          then Some {| gh_inside := false; gh_phase := gh_phase gh; gh_session := gh_session gh |}
          else None
      | EpSend c _ => fun _ => if for_arm c && negb (gh_inside gh) then None else Some gh
      | _ => fun _ => Some gh
      end r
  end.

(** The program does in this order what it may, and what holds when it ends. *)
Fixpoint follows {A} (gh : ghost) (p : prog arm_call A) (post : ghost -> A -> Prop) : Prop :=
  match p with
  | Ret a => post gh a
  | Call c k => forall r, exists gh', ghost_next gh (Event c r) = Some gh' /\ follows gh' (k r) post
  end.

Lemma follows_bind {A B} gh (p : prog arm_call A) (f : A -> prog arm_call B) mid post :
  follows gh p mid -> (forall gh' a, mid gh' a -> follows gh' (f a) post) -> follows gh (p ≫= f) post.
Proof.
  revert gh. induction p as [a|R c k IH]; intros gh Hp Hf; [by apply Hf|].
  intros r. destruct (Hp r) as (gh' & Hn & Hk). exists gh'. split; [done|]. by apply IH.
Qed.

Lemma follows_mono {A} gh (p : prog arm_call A) (post post' : ghost -> A -> Prop) :
  follows gh p post -> (forall gh' a, post gh' a -> post' gh' a) -> follows gh p post'.
Proof.
  revert gh. induction p as [a|R c k IH]; intros gh Hp Hi; [by apply Hi|].
  intros r. destruct (Hp r) as (gh' & Hn & Hk). exists gh'. split; [done|]. by apply IH.
Qed.

(** ** The functions of the arm

    From a ghost that is outside the gate, stops nothing and satisfies [P], a
    function ends with the same one, however it ends. *)
Definition calm (gh : ghost) : Prop := gh_inside gh = false /\ gh_phase gh = Idle.
Definition keeps (P : session -> Prop) {A} (p : arm A) : Prop :=
  forall gh s, calm gh -> P (gh_session gh) -> follows gh (p s) (fun gh' _ => gh' = gh).

Definition any_session (s : session) : Prop := True.
Definition settled (s : session) : Prop := s <> Unread.

(** Calls that no session is concerned with, or none that is read. *)
Definition neutral (P : session -> Prop) (ev : event arm_call) : Prop :=
  forall gh, P (gh_session gh) -> ghost_next gh ev = Some gh.

Section keeps.
Context (P : session -> Prop).

Lemma arm_keeps_ret {A} (a : A) : keeps P (mret a).
Proof. done. Qed.
Lemma arm_keeps_throw {A} e : keeps P (throw e : arm A).
Proof. done. Qed.
Lemma arm_keeps_gets {A} (f : ArmImpl -> A) : keeps P (gets f).
Proof. done. Qed.
Lemma arm_keeps_modify f : keeps P (modify f).
Proof. done. Qed.
Lemma arm_keeps_ask {R} (c : arm_call R) : (forall r, neutral P (Event c r)) -> keeps P (ask c).
Proof. intros Hc gh s _ Hp r. exists gh. split; [by apply Hc|done]. Qed.
Lemma arm_keeps_bind {A B} (p : arm A) (f : A -> arm B) :
  keeps P p -> (forall a, keeps P (f a)) -> keeps P (p ≫= f).
Proof.
  intros Hp Hf gh s Hc Hs. eapply follows_bind; [by apply Hp|]. intros gh' [s' [e|a]] ->; [done|by apply Hf].
Qed.
Lemma arm_keeps_try {A} (p : arm A) h : keeps P p -> (forall e, keeps P (h e)) -> keeps P (try_catch p h).
Proof.
  intros Hp Hh gh s Hc Hs. eapply follows_bind; [by apply Hp|]. intros gh' [s' [e|a]] ->; [by apply Hh|done].
Qed.
End keeps.

Lemma arm_keeps_weaken (P Q : session -> Prop) {A} (p : arm A) : keeps P p -> (forall s, Q s -> P s) -> keeps Q p.
Proof. intros Hp Hi gh s Hc Hs. apply Hp; auto. Qed.

Create HintDb keeps.

Lemma settled_generation r : neutral settled (Event CurrentGeneration r).
Proof. intros [i p [| |g]]; by unfold settled. Qed.

(** Walking through a function. *)
Ltac solve_keeps :=
  repeat first
    [ apply arm_keeps_ret | apply arm_keeps_throw | apply arm_keeps_gets | apply arm_keeps_modify
    | apply arm_keeps_ask; intros ? ? ?; done
    | apply arm_keeps_ask; exact settled_generation
    | match goal with
      | |- keeps _ (if ?b then _ else _) => destruct b
      | |- keeps _ (match ?x with _ => _ end) => destruct x
      | |- keeps _ (let '(_, _) := ?x in _) => destruct x
      end
    | solve [auto with keeps]
    | apply arm_keeps_bind; [|intros ?]
    | apply arm_keeps_try; [|intros ?] ].

Lemma require_keeps P c wait operation : keeps P (require c wait operation).
Proof. unfold require, s_requireOperation. solve_keeps. Qed.
Lemma succeeded_keeps P c wait : keeps P (succeeded c wait).
Proof. unfold succeeded, s_operationSucceeded. solve_keeps. Qed.
#[export] Hint Resolve require_keeps succeeded_keeps : keeps.

(** Stopping control announces the stop, advances the generation and waits. *)
Lemma stopping_keeps P : keeps P s_stopControlLocked.
Proof.
  intros [inside ph ss] s [Hi Hp] _. cbn in Hi, Hp. subst inside ph.
  repeat (cbn; intros ?; eexists; split; [reflexivity|]). done.
Qed.
Lemma live_keeps P : keeps P live.
Proof. unfold live. solve_keeps. Qed.
#[export] Hint Resolve stopping_keeps live_keeps : keeps.
Lemma modes_keep P m : keeps P s_requestPcMode /\ keeps P (s_ensureMode m) /\ keeps P (s_ensureGripperMode m).
Proof. unfold s_requestPcMode, s_ensureMode, s_ensureGripperMode. split_and!; solve_keeps. Qed.
Lemma pc_keeps P : keeps P s_requestPcMode.
Proof. by apply (modes_keep P 0). Qed.
Lemma ensure_keeps P m : keeps P (s_ensureMode m).
Proof. by apply (modes_keep P m). Qed.
Lemma ensure_gripper_keeps P m : keeps P (s_ensureGripperMode m).
Proof. by apply (modes_keep P m). Qed.
#[export] Hint Resolve pc_keeps ensure_keeps ensure_gripper_keeps : keeps.
Lemma live_session_keeps g : keeps settled (live_session g).
Proof. unfold live_session. solve_keeps. Qed.
Lemma cleanup_keeps g : keeps settled (loop_cleanup g).
Proof. unfold loop_cleanup. solve_keeps. Qed.
#[export] Hint Resolve live_session_keeps cleanup_keeps : keeps.

(** A session is prepared: a reader of its generation is then bound to it. *)
Lemma prepare_keeps t : keeps settled (s_prepareControlLocked t).
Proof. unfold s_prepareControlLocked. solve_keeps. Qed.

Definition bound (g : Z) (s : session) : Prop := s = Bound g.
Lemma bound_settled g s : bound g s -> settled s.
Proof. by intros ->. Qed.

Lemma arm_keeps_then {A B} gh s (p : arm A) (f : A -> arm B) post :
  keeps any_session p -> calm gh ->
  (forall a s', follows gh (f a s') post) -> (forall s' e, post gh (s', inl e)) ->
  follows gh ((p ≫= f) s) post.
Proof.
  intros Hp Hc Hf He. eapply follows_bind; [by apply Hp|]. intros gh' [s' [e|a]] ->; [apply He|apply Hf].
Qed.

Lemma prepare_binds t s :
  follows {| gh_inside := false; gh_phase := Idle; gh_session := Unread |} (s_prepareControlLocked t s)
    (fun gh out => gh_inside gh = false /\ gh_phase gh = Idle /\
       match snd out with inl _ => True | inr g => gh_session gh = Bound g end).
Proof.
  unfold s_prepareControlLocked. set (gh := {| gh_session := Unread |}).
  assert (calm gh) as Hc by done.
  apply arm_keeps_then; [solve_keeps|done| |done]. intros info s1. destruct (negb _); [done|].
  do 5 (apply arm_keeps_then; [solve_keeps|done|intros ? ?|done]).
  intros r. eexists. by split.
Qed.

(** A submission through the gate. *)
Lemma sendControlCommand_keeps c g : keeps (bound g) (s_sendControlCommand c g).
Proof.
  intros [inside ph ss] s [Hi Hp] Hb. unfold bound in Hb. cbn in Hi, Hp, Hb. subst inside ph ss.
  intros entered. eexists. cbn. rewrite Z.eqb_refl. split; [done|]. destruct entered; cbn [negb]; [|done].
  intros now. eexists. split; [done|]. cbn. destruct (arm_command (m_fw_dt_us s) c) as [command operation] eqn:Hc.
  intros st. eexists. cbn. rewrite andb_false_r. split; [done|]. unfold s_requireCommand. cbn.
  destruct (negb _); cbn; intros u; eexists; by split.
Qed.
#[export] Hint Resolve sendControlCommand_keeps : keeps.

Lemma control_rounds_keeps fuel g : keeps (bound g) (control_rounds fuel g).
Proof.
  pose proof (arm_keeps_weaken _ (bound g) _ (live_session_keeps g) (bound_settled g)).
  induction fuel as [|fuel IH]; [done|]. cbn [control_rounds]. solve_keeps.
Qed.

Lemma controlLoop_follows fuel t s :
  follows {| gh_inside := false; gh_phase := Idle; gh_session := Unread |} (s_controlLoop fuel t s)
    (fun _ _ => True).
Proof.
  unfold s_controlLoop. eapply follows_bind; [apply prepare_binds|].
  intros gh [s1 [e|g]] (Hi & Hp & Hb); [done|]. cbn [fst snd] in *.
  pose proof (control_rounds_keeps fuel g).
  pose proof (arm_keeps_weaken _ (bound g) _ (cleanup_keeps g) (bound_settled g)).
  eapply follows_mono; [|done]. eapply (arm_keeps_bind (bound g)); [|intros [u|]|by split|exact Hb]; solve_keeps.
Qed.

(** The gripper's commands pass no gate. *)
Lemma sendGripperCommand_keeps P c : keeps P (s_sendGripperCommand c).
Proof.
  unfold s_sendGripperCommand. apply arm_keeps_bind; [apply arm_keeps_gets|]. intros dt.
  destruct (gripper_command dt c) as [[command operation]|] eqn:Hc; [|apply arm_keeps_ret].
  apply arm_keeps_bind; [solve_keeps|]. intros now. apply arm_keeps_bind.
  - apply arm_keeps_ask. intros st gh _. destruct c; by simplify_eq/=.
  - intros st. unfold s_requireCommand. solve_keeps.
Qed.
#[export] Hint Resolve sendGripperCommand_keeps : keeps.

Lemma gripper_rounds_keeps P fuel : keeps P (gripper_rounds fuel).
Proof. induction fuel as [|fuel IH]; [done|]. cbn [gripper_rounds]. solve_keeps. Qed.
#[export] Hint Resolve gripper_rounds_keeps : keeps.

Lemma clear_joints_keeps P n joint : keeps P (clear_joints n joint).
Proof. revert joint. induction n as [|n IH]; intros joint; [done|]. cbn [clear_joints]. solve_keeps. Qed.
#[export] Hint Resolve clear_joints_keeps : keeps.

Lemma connection_keeps P : keeps P connectionState.
Proof. unfold connectionState. solve_keeps. Qed.
Lemma ready_keeps P : keeps P is_ready.
Proof. unfold is_ready, connectionState. solve_keeps. Qed.
#[export] Hint Resolve connection_keeps ready_keeps : keeps.
Lemma wait_ready_keeps P fuel deadline : keeps P (wait_ready fuel deadline).
Proof. induction fuel as [|fuel IH]; [done|]. cbn [wait_ready]. solve_keeps. Qed.
Lemma fetch_keeps P : keeps P s_fetchDeviceInfo.
Proof. unfold s_fetchDeviceInfo. solve_keeps. Qed.
#[export] Hint Resolve wait_ready_keeps fetch_keeps : keeps.

(** *** All of them *)
Definition ghost0 (o : arm_operation) : ghost := {|
  gh_inside := false; gh_phase := Idle;
  gh_session := match o with
    | OpSendControlCommand _ g => Bound g
    | OpControlLoop _ _ => Unread
    | _ => NoSession
    end |}.

Definition program_ok (gh : ghost) (p : prog arm_call unit) : Prop := follows gh p (fun _ _ => True).

Lemma thread_program_ok P {A} (p : arm A) gh s :
  keeps P p -> calm gh -> P (gh_session gh) -> program_ok gh (thread_program p s).
Proof. intros Hp Hc Hs. by eapply follows_bind; [apply Hp|]. Qed.

Lemma program_of_ok o s : program_ok (ghost0 o) (program_of o s).
Proof.
  destruct o; cbn [program_of].
  3: { by eapply follows_bind; [apply controlLoop_follows|]. }
  2: { by apply (thread_program_ok (bound generation)); [apply sendControlCommand_keeps|..]. }
  all: apply (thread_program_ok settled); [|done|done].
  - apply prepare_keeps.
  - apply stopping_keeps.
  - unfold arm_home. solve_keeps.
  - unfold enable, set_mode. solve_keeps.
  - unfold drag, set_mode. solve_keeps.
  - unfold disable, set_mode. solve_keeps.
  - unfold automaticErrorRecovery. solve_keeps.
  - unfold s_prepareGripperControl. solve_keeps.
  - apply sendGripperCommand_keeps.
  - unfold s_gripperLoop. solve_keeps.
  - unfold arm_readMotorRegister. solve_keeps.
  - unfold arm_writeMotorRegister. solve_keeps.
  - unfold storeParameters. solve_keeps.
  - unfold setZeroPoint. solve_keeps.
  - unfold arm_setDeviceSettings. solve_keeps.
  - unfold setCustomName. solve_keeps.
  - apply connection_keeps.
  - unfold waitUntilReady. solve_keeps.
  - unfold close_arm, arm_stop, clear_receive. solve_keeps.
Qed.

(** ** What the threads have done *)

(** The calls of thread [j]. *)
Definition history (j : nat) (ls : list label) : list (event arm_call) :=
  flat_map (fun l => match l with Some (i, ev) => if decide (i = j) then [ev] else [] | None => [] end) ls.
Fixpoint run_ghost (gh : ghost) (h : list (event arm_call)) : option ghost :=
  match h with
  | [] => Some gh
  | ev :: h' => match ghost_next gh ev with Some gh' => run_ghost gh' h' | None => None end
  end.

Lemma history_app j l1 l2 : history j (l1 ++ l2) = history j l1 ++ history j l2.
Proof. apply flat_map_app. Qed.
Lemma history_snoc j ls i ev :
  history j (ls ++ [Some (i, ev)]) = history j ls ++ (if decide (i = j) then [ev] else []).
Proof. rewrite history_app. cbn. by rewrite app_nil_r. Qed.
Lemma history_in j ls ev : In ev (history j ls) <-> In (Some (j, ev)) ls.
Proof.
  unfold history. rewrite in_flat_map. split.
  - intros ([[i ev']|] & Hl & Hev); [|done]. destruct (decide (i = j)) as [->|]; [|done].
    by destruct Hev as [->|[]].
  - intros Hl. eexists. split; [exact Hl|]. cbn. rewrite decide_True by done. by left.
Qed.

Lemma run_ghost_app gh h1 h2 :
  run_ghost gh (h1 ++ h2) = match run_ghost gh h1 with Some gh' => run_ghost gh' h2 | None => None end.
Proof.
  revert gh. induction h1 as [|ev h1 IH]; intros gh; [done|]. cbn. by destruct (ghost_next gh ev).
Qed.

(** The submissions inside are those the gate counts. *)
Fixpoint inside_count (gs : list ghost) : Z :=
  match gs with [] => 0 | g :: gs' => (if gh_inside g then 1 else 0) + inside_count gs' end.

Lemma inside_count_insert gs i g g' :
  gs !! i = Some g ->
  inside_count (<[i:=g']> gs) =
    inside_count gs - (if gh_inside g then 1 else 0) + (if gh_inside g' then 1 else 0).
Proof.
  revert i. induction gs as [|u gs IH]; intros [|i]; try done.
  - intros [= ->]. cbn. lia.
  - intros Hi. change (<[S i:=g']> (u :: gs)) with (u :: <[i:=g']> gs). cbn [inside_count].
    rewrite (IH i) by done. lia.
Qed.

Lemma inside_count_app gs gs' : inside_count (gs ++ gs') = inside_count gs + inside_count gs'.
Proof. induction gs as [|g gs IH]; [done|]. cbn. rewrite IH. lia. Qed.

Lemma inside_count_nonneg gs : 0 <= inside_count gs.
Proof. induction gs as [|g gs IH]; [done|]. cbn. destruct (gh_inside g); lia. Qed.

Lemma inside_count_zero gs i g : inside_count gs = 0 -> gs !! i = Some g -> gh_inside g = false.
Proof.
  revert i. induction gs as [|u gs IH]; intros [|i]; cbn; try done; pose proof (inside_count_nonneg gs).
  - intros Hc [= ->]. destruct (gh_inside g); lia.
  - intros Hc. apply IH. destruct (gh_inside u); lia.
Qed.

(** Every thread did what its operation may do, and goes on so. *)
Record sys_inv (L : list label) (gs : list ghost) (s : system) : Prop := {
  si_length : length gs = length (sy_threads s);
  si_thread : forall j t gh, sy_threads s !! j = Some t -> gs !! j = Some gh ->
    run_ghost (ghost0 (th_operation t)) (history j L) = Some gh /\ program_ok gh (th_left t);
  si_none : forall j, (length gs <= j)%nat -> history j L = [];
  si_count : sh_inflight (sy_shared s) = inside_count gs
}.

Lemma sys_inv0 : sys_inv [] [] system0.
Proof. by split. Qed.

(** The gate counts the threads that are inside. *)
Lemma count_next ev gh gh' m m' :
  ghost_next gh ev = Some gh' -> gate_call ev m m' ->
  sh_inflight m' = sh_inflight m - (if gh_inside gh then 1 else 0) + (if gh_inside gh' then 1 else 0).
Proof.
  destruct gh as [inside ph ss], ev as [R c r], c; cbn; try (intros [= <-]; cbn; intros ->; lia).
  - destruct (for_arm c && negb inside); [done|]. intros [= <-] ->. cbn. lia.
  - destruct b; intros [= <-] ->; cbn; lia.
  - destruct ph; try done. intros [= <-] ->. cbn. lia.
  - destruct ph; try done. intros [= <-] [_ ->]. cbn. lia.
  - intros [= <-] [_ ->]. cbn. lia.
  - destruct inside, ss as [| |g']; try done. destruct (g =? g'); [|done].
    intros [= <-]. destruct r; intros [_ ->]; cbn; lia.
  - destruct inside; [|done]. intros [= <-] ->. cbn. lia.
Qed.

Lemma sys_inv_step L gs s l s' :
  sys_inv L gs s -> sys_step s l s' -> exists gs', sys_inv (L ++ [l]) gs' s'.
Proof.
  intros [Hlen Hth Hnone Hcount] Hstep.
  destruct Hstep as [m ts i o R c k r m' Hi Hcall|m ts o s0]; cbn [sy_shared sy_threads] in *.
  - destruct (lookup_lt_is_Some_2 gs i) as [gh Hgh]; [rewrite Hlen; by eapply lookup_lt_Some|].
    destruct (Hth i _ gh Hi Hgh) as [Hrun Hok]. destruct (Hok r) as (gh' & Hn & Hk).
    exists (<[i:=gh']> gs). split; cbn [sy_shared sy_threads].
    + by rewrite !length_insert.
    + intros j t g Hj Hg. rewrite history_snoc. destruct (decide (i = j)) as [<-|Hne].
      * rewrite list_lookup_insert_eq in Hj by (by eapply lookup_lt_Some).
        rewrite list_lookup_insert_eq in Hg by (by eapply lookup_lt_Some).
        injection Hj as <-. injection Hg as <-. cbn [th_operation th_left] in *.
        split; [|done]. rewrite run_ghost_app, Hrun. cbn [run_ghost]. by rewrite Hn.
      * rewrite list_lookup_insert_ne in Hj by done. rewrite list_lookup_insert_ne in Hg by done. rewrite app_nil_r. by apply Hth.
    + intros j. rewrite length_insert, history_snoc. intros Hj. rewrite Hnone by done.
      rewrite decide_False; [done|]. intros ->. apply lookup_lt_Some in Hgh. lia.
    + rewrite (inside_count_insert _ _ _ _ Hgh), <- Hcount. by eapply count_next.
  - exists (gs ++ [ghost0 o]). split; cbn [sy_shared sy_threads].
    + rewrite !length_app. cbn. lia.
    + intros j t g Hj Hg. rewrite history_app, app_nil_r.
      apply lookup_app_Some in Hj as [Hj|[Hle Hj]]; apply lookup_app_Some in Hg as [Hg|[Hle' Hg]].
      * by apply Hth.
      * apply lookup_lt_Some in Hj. lia.
      * apply lookup_lt_Some in Hg. lia.
      * destruct (j - length ts)%nat eqn:Hd; [|done]. injection Hj as <-. rewrite Hlen, Hd in Hg.
        injection Hg as <-. rewrite Hnone by lia. split; [done|apply program_of_ok].
    + intros j. rewrite length_app, history_app, app_nil_r. intros Hj. apply Hnone. cbn in Hj. lia.
    + rewrite inside_count_app, Hcount. cbn. lia.
Qed.

Lemma sys_inv_exec L gs s ls g s' :
  sys_inv L gs s -> exec s ls g s' -> exists gs', sys_inv (L ++ ls) gs' s'.
Proof.
  intros Hs. induction 1 as [|ls g s1 l s2 _ IH Hstep]; [exists gs; by rewrite app_nil_r|].
  destruct IH as [gs1 H1]. rewrite app_assoc. by eapply sys_inv_step.
Qed.

(** A thread keeps its place and its operation. *)
Lemma step_operation s l s' j t :
  sys_step s l s' -> sy_threads s !! j = Some t ->
  exists t', sy_threads s' !! j = Some t' /\ th_operation t' = th_operation t.
Proof.
  destruct 1 as [m ts i o R c k r m' Hi _|m ts o s0]; cbn [sy_threads]; intros Hj.
  - destruct (decide (i = j)) as [<-|Hne].
    + rewrite list_lookup_insert_eq by (by eapply lookup_lt_Some). simplify_eq. by eexists.
    + rewrite list_lookup_insert_ne by done. by exists t.
  - exists t. split; [by apply lookup_app_l_Some|done].
Qed.
Lemma exec_operation s ls g s' j t :
  exec s ls g s' -> sy_threads s !! j = Some t ->
  exists t', sy_threads s' !! j = Some t' /\ th_operation t' = th_operation t.
Proof.
  intros Hex Hj. induction Hex as [|ls g s1 l s2 _ IH Hstep]; [by exists t|].
  destruct IH as (t1 & H1 & <-). by eapply step_operation.
Qed.

(** *** What a history shows *)

Lemma next_session gh ev gh' :
  ghost_next gh ev = Some gh' -> settled (gh_session gh) -> gh_session gh' = gh_session gh.
Proof.
  destruct gh as [inside ph ss], ev as [R c r], c; cbn; try (by intros [= <-]).
  - by destruct (for_arm c && negb inside); [|intros [= <-]].
  - by destruct b; intros [= <-].
  - by destruct ph; [|intros [= <-]|].
  - by destruct ph; [| |intros [= <-]].
  - intros [= <-]. cbn. by destruct ss.
  - destruct inside, ss as [| |g']; try done. destruct (g =? g'); [|done]. by intros [= <-].
  - by destruct inside; [intros [= <-]|].
Qed.

Lemma run_session gh h gh' :
  run_ghost gh h = Some gh' -> settled (gh_session gh) -> gh_session gh' = gh_session gh.
Proof.
  revert gh. induction h as [|ev h IH]; intros gh; [by intros [= <-]|]. cbn [run_ghost].
  destruct (ghost_next gh ev) as [gh1|] eqn:Hn; [|done]. intros Hr Hs.
  pose proof (next_session _ _ _ Hn Hs) as He. rewrite <- He. apply IH; [done|]. by rewrite He.
Qed.

(** Only entering the gate puts a thread inside, for its session. *)
Lemma next_inside gh ev gh' :
  ghost_next gh ev = Some gh' -> gh_inside gh = false -> gh_inside gh' = true ->
  exists x, ev = Event (GateEnter x) true /\ gh_session gh' = Bound x.
Proof.
  destruct gh as [inside ph ss], ev as [R c r], c; cbn; try (by intros [= <-] ->);
    try (intros [= <-] -> [=]).
  - by destruct (for_arm c && negb inside); [|intros [= <-]; cbn; intros ->].
  - by destruct b; intros [= <-]; cbn; intros ->.
  - by destruct ph; [|intros [= <-]; cbn; intros ->|].
  - by destruct ph; [| |intros [= <-]; cbn; intros ->].
  - destruct inside, ss as [| |g']; try done. destruct (Z.eqb_spec g g') as [<-|]; [|done].
    intros [= <-] _ Hr. cbn in Hr. subst r. by exists g.
  - by destruct inside; [intros [= <-]|].
Qed.

Lemma run_inside gh h gh' :
  run_ghost gh h = Some gh' -> gh_inside gh = false -> gh_inside gh' = true ->
  exists x, In (Event (GateEnter x) true) h /\ gh_session gh' = Bound x.
Proof.
  revert gh'. induction h as [|ev h IH] using rev_ind; intros gh'.
  - intros [= <-]. congruence.
  - rewrite run_ghost_app. destruct (run_ghost gh h) as [gh1|] eqn:Hr; [|done]. cbn [run_ghost].
    destruct (ghost_next gh1 ev) as [gh2|] eqn:Hn; [|done]. intros [= ->] Hout Hin.
    destruct (gh_inside gh1) eqn:H1.
    + destruct (IH gh1 eq_refl Hout H1) as (x & Hx & Hs). exists x. split; [apply in_or_app; by left|].
      rewrite <- Hs. apply (next_session _ _ _ Hn). by rewrite Hs.
    + destruct (next_inside _ _ _ Hn H1 Hin) as (x & -> & Hs). exists x.
      split; [apply in_or_app; right; by left|done].
Qed.

(** Between the announcement of a stop and the waiting the generation advances. *)
Lemma run_advances gh h gh' :
  run_ghost gh h = Some gh' -> gh_phase gh = Stopping -> gh_phase gh' = Advanced ->
  exists u, In (Event AdvanceGeneration u) h.
Proof.
  revert gh. induction h as [|ev h IH]; intros gh; [intros [= <-]; congruence|]. cbn [run_ghost].
  destruct (ghost_next gh ev) as [gh1|] eqn:Hn; [|done]. intros Hr Hp Ha.
  assert ((exists u, ev = Event AdvanceGeneration u) \/ gh_phase gh1 = Stopping) as [[u ->]|H1].
  { destruct gh as [inside ph ss], ev as [R c r], c; cbn in Hn, Hp; subst ph;
      try (injection Hn as <-; by right); try (left; exists r; reflexivity); try done; right.
    - destruct (for_arm c && negb inside); [done|]. by injection Hn as <-.
    - by destruct b; injection Hn as <-.
    - destruct inside, ss as [| |g']; try done. destruct (g =? g'); [|done]. by injection Hn as <-.
    - destruct inside; [|done]. by injection Hn as <-. }
  - exists u. by left.
  - destruct (IH gh1 Hr H1 Ha) as [u Hu]. exists u. by right.
Qed.

(** A reader of the generation is bound to the first one it reads. *)
Lemma run_reads gh h gh' r :
  run_ghost gh h = Some gh' -> gh_session gh = Unread -> In (Event CurrentGeneration r) h ->
  exists r0, In (Event CurrentGeneration r0) h /\ gh_session gh' = Bound r0.
Proof.
  revert gh. induction h as [|ev h IH]; intros gh; [done|]. cbn [run_ghost].
  destruct (ghost_next gh ev) as [gh1|] eqn:Hn; [|done]. intros Hr Hs Hin.
  assert ((exists r0, ev = Event CurrentGeneration r0 /\ gh_session gh1 = Bound r0) \/
    gh_session gh1 = Unread /\ ev <> Event CurrentGeneration r) as [(r0 & -> & H1)|[H1 Hne]].
  { destruct gh as [inside ph ss], ev as [R c r1], c; cbn in Hn, Hs; subst ss;
      try (injection Hn as <-; by right); try (right; split; [|done]);
      try (injection Hn as <-; left; exists r1; split; reflexivity).
    - destruct (for_arm c && negb inside); [done|]. by injection Hn as <-.
    - by destruct b; injection Hn as <-.
    - destruct ph; try done. by injection Hn as <-.
    - destruct ph; try done. by injection Hn as <-.
    - by destruct inside.
    - destruct inside; [|done]. by injection Hn as <-. }
  - exists r0. split; [by left|]. rewrite <- H1. apply (run_session _ _ _ Hr). by rewrite H1.
  - destruct Hin as [->|Hin]; [done|]. destruct (IH gh1 Hr H1 Hin) as (r0 & H0 & He).
    exists r0. split; [by right|done].
Qed.

(** *** The generations *)

Definition is_advance (l : label) : bool :=
  match l with Some (_, Event AdvanceGeneration _) => true | _ => false end.
Definition advances (ls : list label) : Z := Z.of_nat (length (List.filter is_advance ls)).

Lemma advances_app l1 l2 : advances (l1 ++ l2) = advances l1 + advances l2.
Proof. unfold advances. rewrite List.filter_app, length_app. lia. Qed.
Lemma advances_one l : advances [l] = if is_advance l then 1 else 0.
Proof. unfold advances. cbn [List.filter]. by destruct (is_advance l). Qed.
Lemma advances_length ls : 0 <= advances ls <= Z.of_nat (length ls).
Proof. unfold advances. pose proof (List.filter_length_le is_advance ls). lia. Qed.
Lemma advances_in i u ls : In (Some (i, Event AdvanceGeneration u)) ls -> 1 <= advances ls.
Proof.
  intros (l1 & l2 & ->)%in_split. rewrite advances_app.
  change (advances (Some (i, Event AdvanceGeneration u) :: l2)) with
    (Z.of_nat (S (length (List.filter is_advance l2)))).
  pose proof (advances_length l1). lia.
Qed.

Lemma step_generation s l s' :
  sys_step s l s' ->
  sh_generation (sy_shared s') =
    if is_advance l then u64 (sh_generation (sy_shared s) + 1) else sh_generation (sy_shared s).
Proof.
  destruct 1 as [m ts i o R c k r m' _ Hcall|]; [|done]. cbn [sy_shared].
  destruct c; cbn in Hcall |- *; try (by subst m'); try (by destruct Hcall as [_ ->]).
  by destruct r, Hcall as [_ ->].
Qed.

Lemma u64_add z k : u64 (u64 z + k) = u64 (z + k).
Proof. unfold wrap. by rewrite Z.add_mod_idemp_l. Qed.

Lemma exec_generations z s ls gs s' :
  sh_generation (sy_shared s) = u64 z -> exec s ls gs s' ->
  sh_generation (sy_shared s') = u64 (z + advances ls) /\
  forall x, In x gs -> exists k, 0 <= k <= advances ls /\ x = u64 (z + k).
Proof.
  intros Hs. induction 1 as [|ls gs s1 l s2 Hex [IHg IHx] Hstep].
  - rewrite Z.add_0_r. split; [done|]. intros x [<-|[]]. exists 0. by rewrite Z.add_0_r.
  - rewrite advances_app, (step_generation _ _ _ Hstep), IHg.
    pose proof (advances_length ls). rewrite advances_one. destruct (is_advance l).
    + rewrite u64_add. split; [f_equal; lia|]. intros x [Hx|[<-|[]]]%in_app_or.
      * destruct (IHx x Hx) as (k & Hk & He). exists k. split; [lia|done].
      * exists (advances ls + 1). split; [lia|f_equal; lia].
    + split; [f_equal; lia|]. intros x [Hx|[<-|[]]]%in_app_or.
      * destruct (IHx x Hx) as (k & Hk & He). exists k. split; [lia|done].
      * exists (advances ls). split; [lia|done].
Qed.

(** A call of a thread. *)
Lemma sys_call_inv s i ev s' :
  sys_step s (Some (i, ev)) s' ->
  exists o R (c : arm_call R) k r, ev = Event c r /\
    sy_threads s !! i = Some {| th_operation := o; th_left := Call c k |} /\
    gate_call ev (sy_shared s) (sy_shared s').
Proof.
  intros Hstep. inversion Hstep as [m ts i' o R c k r m' Hi Hcall E1 E2 E3|]; subst.
  by exists o, R, c, k, r.
Qed.

(** A generation that was read, or entered with, was current. *)
Definition names (ev : event arm_call) (x : Z) : Prop :=
  ev = Event CurrentGeneration x \/ ev = Event (GateEnter x) true.

Lemma exec_current s ls gs s' j ev x :
  exec s ls gs s' -> names ev x -> In (Some (j, ev)) ls -> In x gs.
Proof.
  intros Hex Hx. assert (forall s ls gs s', exec s ls gs s' -> In (sh_generation (sy_shared s')) gs) as Hlast.
  { intros ? ? ? ?. destruct 1; [by left|]. apply in_or_app. right. by left. }
  induction Hex as [|ls gs s1 l s2 Hex IH Hstep]; [done|].
  intros [Hin|[->|[]]]%in_app_or; apply in_or_app; left; [auto|].
  apply sys_call_inv in Hstep as (o & R & c & k & r & _ & _ & Hcall).
  apply Hlast in Hex. destruct Hx as [-> | ->]; cbn in Hcall; by destruct Hcall as [-> _].
Qed.

(** The ghost of a thread that makes a call allows it. *)
Lemma call_ghost L gs s i ev s' :
  sys_inv L gs s -> sys_step s (Some (i, ev)) s' ->
  exists t gh gh', sy_threads s !! i = Some t /\ gs !! i = Some gh /\
    run_ghost (ghost0 (th_operation t)) (history i L) = Some gh /\ ghost_next gh ev = Some gh'.
Proof.
  intros [Hlen Hth _ _] (o & R & c & k & r & -> & Hi & _)%sys_call_inv.
  destruct (lookup_lt_is_Some_2 gs i) as [gh Hgh]; [rewrite Hlen; by eapply lookup_lt_Some|].
  destruct (Hth i _ gh Hi Hgh) as [Hrun Hok]. destruct (Hok r) as (gh' & Hn & _).
  by exists {| th_operation := o; th_left := Call c k |}, gh, gh'.
Qed.

(** *** A stop *)

(** Between its announcement and the end of its waiting the generation advances. *)
Lemma stop_advances L gs0 gs1 gs2 s0 i u s1 la ga s2 v s3 :
  sys_inv L gs0 s0 -> sys_inv (L ++ [Some (i, Event (StoreStop true) u)]) gs1 s1 ->
  sys_inv ((L ++ [Some (i, Event (StoreStop true) u)]) ++ la) gs2 s2 ->
  sys_step s0 (Some (i, Event (StoreStop true) u)) s1 -> exec s1 la ga s2 ->
  sys_step s2 (Some (i, Event DrainSends v)) s3 -> 1 <= advances la.
Proof.
  intros I0 I1 I2 Hstop Ha Hdrain.
  destruct (call_ghost _ _ _ _ _ _ I0 Hstop) as (t0 & gh0 & gh1 & Ht0 & _ & H0 & Hn0).
  destruct (call_ghost _ _ _ _ _ _ I2 Hdrain) as (t2 & gh2 & gh3 & Ht2 & _ & H2 & Hn2).
  destruct (step_operation _ _ _ _ _ Hstop Ht0) as (t1 & Ht1 & Ho1).
  destruct (exec_operation _ _ _ _ _ _ Ha Ht1) as (t2' & Ht2' & Ho2). simplify_eq.
  rewrite Ho2, Ho1, !history_app, !run_ghost_app, H0 in H2. cbn [history flat_map] in H2.
  rewrite decide_True in H2 by done. cbn [app run_ghost] in H2. rewrite Hn0 in H2.
  destruct (run_advances _ _ _ H2) as [w Hw].
  - cbn in Hn0. by injection Hn0 as <-.
  - cbn in Hn2. by destruct (gh_phase gh2).
  - apply history_in in Hw. by eapply advances_in.
Qed.

(** When the waiting ends, no thread that is there later is inside the gate. *)
Lemma drained_outside L gs2 gs3 s2 i v s3 ls gs s4 j t gh :
  sys_inv L gs2 s2 -> sys_inv (L ++ [Some (i, Event DrainSends v)]) gs3 s3 ->
  sys_step s2 (Some (i, Event DrainSends v)) s3 -> exec s3 ls gs s4 ->
  sy_threads s4 !! j = Some t ->
  run_ghost (ghost0 (th_operation t)) (history j (L ++ [Some (i, Event DrainSends v)])) = Some gh ->
  gh_inside gh = false.
Proof.
  intros I2 I3 Hdrain Hs Ht Hrun. destruct I3 as [Hlen Hth Hnone Hcount].
  assert (sh_inflight (sy_shared s3) = 0) as Hz.
  { apply sys_call_inv in Hdrain as (o & R & c & k & r & _ & _ & [Hz Hm]). by rewrite Hm. }
  destruct (sy_threads s3 !! j) as [t3|] eqn:H3.
  - destruct (exec_operation _ _ _ _ _ _ Hs H3) as (t4 & H4 & Ho). simplify_eq.
    destruct (lookup_lt_is_Some_2 gs3 j) as [gh3 Hgh]; [rewrite Hlen; by eapply lookup_lt_Some|].
    destruct (Hth j _ gh3 H3 Hgh) as [Hr _]. rewrite Ho in Hrun. simplify_eq.
    eapply inside_count_zero; [|exact Hgh]. by rewrite <- Hcount.
  - rewrite Hnone in Hrun by (rewrite Hlen; by apply lookup_ge_None). by injection Hrun as <-.
Qed.

(** What is current after the stop was not before it. *)
Lemma generation_new l0 g0 s0 s1 la ga s2 s3 ls gs s4 i u v x :
  exec system0 l0 g0 s0 ->
  sys_step s0 (Some (i, Event (StoreStop true) u)) s1 -> exec s1 la ga s2 ->
  sys_step s2 (Some (i, Event DrainSends v)) s3 -> exec s3 ls gs s4 ->
  1 <= advances la -> Z.of_nat (length l0 + length la + length ls) < 2 ^ 64 - 1 ->
  In x gs -> ~ In x g0.
Proof.
  intros H0 Hstop Ha Hdrain Hs Hadv Hlen Hx Hx0.
  destruct (exec_generations 1 system0 _ _ _ eq_refl H0) as [G0 X0].
  pose proof (step_generation _ _ _ Hstop) as G1. cbn in G1. rewrite G0 in G1.
  destruct (exec_generations _ _ _ _ _ G1 Ha) as [G2 _].
  pose proof (step_generation _ _ _ Hdrain) as G3. cbn in G3. rewrite G2 in G3.
  destruct (exec_generations _ _ _ _ _ G3 Hs) as [_ X4].
  destruct (X0 x Hx0) as (k0 & Hk0 & ->). destruct (X4 _ Hx) as (k & Hk & He).
  pose proof (advances_length l0). pose proof (advances_length la). pose proof (advances_length ls).
  rewrite !wrap_id in He by (unfold in_u; lia). lia.
Qed.

(** C6: stopping control silences every earlier session.  The operations of the
    arm ([program_of]: control loops, writers of handles, lifecycle functions,
    the gripper's and the rest), any number of each, run in any interleaving.
    One thread announces a stop ([s_stopControlLocked] begins) and then comes back
    from waiting for the submissions (it ends).  If a thread submits an arm command
    at any later time, it has passed the control gate after that moment, with a
    generation that was current after it and never before the stop began (short of
    2^64 steps).  So the thread is the writer of a handle whose generation was
    not made before the stop, or a control loop that had not read its generation
    by then: the loops and handles of earlier sessions, and all other
    operations, submit nothing. *)
Theorem stop_excludes_commands l0 g0 s0 i u s1 la ga s2 v s3 ls gs s4 j c ts st s5 :
  exec system0 l0 g0 s0 ->
  sys_step s0 (Some (i, Event (StoreStop true) u)) s1 -> exec s1 la ga s2 ->
  sys_step s2 (Some (i, Event DrainSends v)) s3 -> exec s3 ls gs s4 ->
  sys_step s4 (Some (j, Event (EpSend c ts) st)) s5 -> for_arm c = true ->
  Z.of_nat (length l0 + length la + length ls) < 2 ^ 64 - 1 ->
  exists x t,
    In (Some (j, Event (GateEnter x) true)) ls /\ In x gs /\ ~ In x g0 /\
    sy_threads s4 !! j = Some t /\
    match th_operation t with
    | OpSendControlCommand _ g => ~ In g g0
    | OpControlLoop _ _ => forall r, ~ In (Some (j, Event CurrentGeneration r)) l0
    | _ => False
    end.
Proof.
  intros H0 Hstop Ha Hdrain Hs Hsend Harm Hlen.
  destruct (sys_inv_exec _ _ _ _ _ _ sys_inv0 H0) as [gs0 I0]. cbn [app] in I0.
  destruct (sys_inv_step _ _ _ _ _ I0 Hstop) as [gs1 I1].
  destruct (sys_inv_exec _ _ _ _ _ _ I1 Ha) as [gs2 I2].
  destruct (sys_inv_step _ _ _ _ _ I2 Hdrain) as [gs3 I3].
  destruct (sys_inv_exec _ _ _ _ _ _ I3 Hs) as [gs4 I4].
  (* the generation advanced in between *)
  assert (1 <= advances la) as Hadv
    by exact (stop_advances _ _ _ _ _ _ _ _ _ _ _ _ _ I0 I1 I2 Hstop Ha Hdrain).
  (* nobody was inside when the waiting ended *)
  assert (forall t, sy_threads s4 !! j = Some t -> forall gh,
    run_ghost (ghost0 (th_operation t)) (history j (((l0 ++ [Some (i, Event (StoreStop true) u)]) ++ la)
      ++ [Some (i, Event DrainSends v)])) = Some gh -> gh_inside gh = false) as Hout
    by (intros t Ht gh; exact (drained_outside _ _ _ _ _ _ _ _ _ _ _ _ _ I2 I3 Hdrain Hs Ht)).
  destruct (call_ghost _ _ _ _ _ _ I4 Hsend) as (t & gh & gh' & Ht & _ & Hrun & Hn).
  pose proof Hrun as Hall. rewrite history_app, run_ghost_app in Hrun.
  destruct (run_ghost _ (history j (_ ++ _))) as [gh3|] eqn:H3; [|done].
  assert (gh_inside gh = true) as Hin.
  { cbn in Hn. rewrite Harm in Hn. by destruct (gh_inside gh). }
  destruct (run_inside _ _ _ Hrun (Hout t Ht gh3 H3) Hin) as (x & Hx & Hb).
  apply history_in in Hx. exists x, t.
  assert (In x gs) as Hxgs by (eapply exec_current; [exact Hs|right; reflexivity|done]).
  assert (~ In x g0) as Hnew by (eapply (generation_new l0 g0 s0 s1 la ga s2 s3 ls gs s4); eassumption).
  do 4 (split; [done|]).
  destruct (th_operation t) eqn:Ho; cbn [ghost0] in Hall;
    try (pose proof (run_session _ _ _ Hall ltac:(done)) as He; rewrite Hb in He; cbn in He; congruence).
  intros r Hr. apply Hnew. revert Hall. rewrite <- !app_assoc, history_app, run_ghost_app.
  destruct (run_ghost _ (history j l0)) as [ghr|] eqn:Hl0; [|done]. intros Hrest.
  destruct (run_reads _ _ _ r Hl0 eq_refl ltac:(by apply history_in)) as (r0 & Hr0 & Hbr).
  pose proof (run_session _ _ _ Hrest ltac:(by rewrite Hbr)) as He. rewrite Hb, Hbr in He.
  injection He as ->. eapply exec_current; [exact H0|left; reflexivity|by apply history_in].
Qed.

(** *** An execution

    A thread stops control; then a handle of the new generation sends. *)

Definition sample_command : UserCommand := UJointVel {| vel_dq := [0; 0; 0; 0; 0; 0] |}.

(** Thread [i] makes its next call, which is answered with [r]. *)
Ltac thread_step i r :=
  refine (sys_call _ _ i _ _ _ _ r _ _ _); [reflexivity|cbn; repeat split; reflexivity].

Lemma stop_execution : exists l0 g0 s0 s1 la ga s2 s3 ls gs s4 s5,
  exec system0 l0 g0 s0 /\
  sys_step s0 (Some (0%nat, Event (StoreStop true) tt)) s1 /\ exec s1 la ga s2 /\
  sys_step s2 (Some (0%nat, Event DrainSends tt)) s3 /\ exec s3 ls gs s4 /\
  sys_step s4 (Some (1%nat, Event (EpSend (fst (arm_command 2000 sample_command)) 7) kOk)) s5 /\
  Z.of_nat (length l0 + length la + length ls) < 2 ^ 64 - 1.
Proof.
  eexists _, _, _, _, _, _, _, _, _, _, _, _. split_and!.
  - eapply exec_snoc; [apply exec_nil|]. apply (sys_spawn _ _ OpStop arm0).
  - thread_step 0%nat tt.
  - eapply exec_snoc; [eapply exec_snoc; [eapply exec_snoc; [apply exec_nil|]|]|]; thread_step 0%nat tt.
  - thread_step 0%nat tt.
  - eapply exec_snoc; [eapply exec_snoc; [eapply exec_snoc; [apply exec_nil|]|]|].
    + apply (sys_spawn _ _ (OpSendControlCommand sample_command 2) arm0).
    + thread_step 1%nat true.
    + thread_step 1%nat 7.
  - thread_step 1%nat kOk.
  - reflexivity.
Qed.

Lemma stop_excludes_commands_witness :
  exists g0 s3 ls gs s4 s5 x,
    exec s3 ls gs s4 /\
    sys_step s4 (Some (1%nat, Event (EpSend (fst (arm_command 2000 sample_command)) 7) kOk)) s5 /\
    In (Some (1%nat, Event (GateEnter x) true)) ls /\ In x gs /\ ~ In x g0.
Proof.
  destruct stop_execution as (l0 & g0 & s0 & s1 & la & ga & s2 & s3 & ls & gs & s4 & s5 & H0 & Hstop & Ha
    & Hd & Hs & Hsend & Hlen).
  destruct (stop_excludes_commands l0 g0 s0 0%nat tt s1 la ga s2 tt s3 ls gs s4 1%nat
    (fst (arm_command 2000 sample_command)) 7 kOk s5 H0 Hstop Ha Hd Hs Hsend eq_refl Hlen)
    as (x & t & Hx & Hg & Hn & _).
  exists g0, s3, ls, gs, s4, s5, x. split_and!; assumption.
Defined.
