(* ===== verification/GateRefinement.v ===== *)
(** * The control gate: the fine steps implement the coarse ones

    [ArmThreads.v] uses [ControlGeneration] through the interface [gate_call]:
    entering, leaving, advancing and draining are single steps there.
    [ControlGeneration.v] has the code's atomic accesses instead.  Here every
    access is shown to be one call of the interface, or none: the accesses of
    [send] and [invalidate] have linearization points. *)

From S2P Require Import Prelude Endpoint EndpointOps EndpointCalls Commands ControlGeneration Prog ArmImpl ArmThreads.

(** A call of the interface moves its thread into the gate, or out of it; the
    commands for the arm are sent inside. *)
Definition gate_next (ev : event arm_call) (inside inside' : bool) : Prop :=
  match ev with
  | Event c r =>
      match c in arm_call R return R -> Prop with
      | GateEnter _ => fun entered => inside = false /\ inside' = entered
      | GateLeave => fun _ => inside = true /\ inside' = false
      | EpSend c _ => fun _ => (for_arm c = true -> inside = true) /\ inside' = inside
      | _ => fun _ => inside' = inside
      end r
  end.

(** A thread is inside the gate of the interface from its successful second
    check to its [fetch_sub]. *)
Definition linear_inside (pc : send_pc) : bool :=
  match pc with SendBody _ | SendLeave false => true | _ => false end.

Fixpoint linear_count (ts : list send_pc) : Z :=
  match ts with [] => 0 | pc :: ts' => Z.b2z (linear_inside pc) + linear_count ts' end.

(** The interface's view of the state. *)
Definition linear_gate (s : gate) : shared :=
  {| sh_generation := m_generation (g_shared s); sh_inflight := linear_count (g_senders s) |}.

(** The call that an access of a sender, or of [invalidate], amounts to. *)
Definition linear_send (c : ControlGeneration) (pc : send_pc) : option (event arm_call) :=
  match pc with
  | SendCheck g => if g =? m_generation c then None else Some (Event (GateEnter g) false)
  | SendRecheck g => Some (Event (GateEnter g) (g =? m_generation c))
  | SendLeave false => Some (Event GateLeave tt)
  | _ => None
  end.
Definition linear_invalidate (c : ControlGeneration) (pc : invalidate_pc) : option (event arm_call) :=
  match pc with
  | InvAdvance => Some (Event AdvanceGeneration tt)
  | InvLoad => if m_inflight c =? 0 then Some (Event DrainSends tt) else None
  | _ => None
  end.

Lemma linear_count_insert ts i pc pc' :
  ts !! i = Some pc ->
  linear_count (<[i:=pc']> ts) =
    linear_count ts - Z.b2z (linear_inside pc) + Z.b2z (linear_inside pc').
Proof.
  revert i. induction ts as [|x ts IH]; intros [|i] Hi; try done.
  - injection Hi as ->. cbn. lia.
  - change (<[S i:=pc']> (x :: ts)) with (x :: <[i:=pc']> ts). cbn [linear_count].
    rewrite (IH i) by done. lia.
Qed.

Lemma linear_count_range ts : 0 <= linear_count ts <= count_inside ts.
Proof. induction ts as [|[] ts IH]; cbn; try lia. destruct expired; cbn; lia. Qed.

(** C19: the control gate implements its interface.  In every reachable state,
    each atomic access of [send] and of [invalidate] either leaves the
    interface's view of the gate alone, or is one of its calls: the generation
    check under which [send] goes on or throws is an entry that the interface
    allows or refuses in this state, the [fetch_sub] is the exit, and the load
    with which the loop of [invalidate] ends sees a gate with nobody inside. *)
Theorem gate_refines threads c ts iv :
  let s := {| g_shared := c; g_senders := ts; g_invalidate := iv |} in
  Z.of_nat threads < 2 ^ 32 -> gate_reachable threads s ->
  (forall i pc c' pc' notify, ts !! i = Some pc -> send_step c pc = Some (c', pc', notify) ->
     let s' := {| g_shared := c'; g_senders := <[i:=pc']> ts;
                  g_invalidate := if notify then wake iv else iv |} in
     match linear_send c pc with
     | Some ev => gate_call ev (linear_gate s) (linear_gate s') /\
                  gate_next ev (linear_inside pc) (linear_inside pc')
     | None => linear_gate s' = linear_gate s /\ linear_inside pc' = linear_inside pc
     end) /\
  (forall c' iv', invalidate_step c iv = Some (c', iv') ->
     let s' := {| g_shared := c'; g_senders := ts; g_invalidate := iv' |} in
     match linear_invalidate c iv with
     | Some ev => gate_call ev (linear_gate s) (linear_gate s')
     | None => linear_gate s' = linear_gate s
     end).
Proof.
  intros s Ht Hr. destruct (gate_reachable_inv _ _ Ht Hr) as [_ Hcount _ _ _]. cbn in Hcount.
  unfold s, linear_gate; cbn [g_shared g_senders g_invalidate]. split.
  - intros i pc c' pc' notify Hi Hs. cbv zeta. rewrite (linear_count_insert _ _ _ _ Hi).
    destruct pc as [g|g|g|g|[]|e|e]; cbn in Hs |- *; try done.
    + destruct (Z.eqb_spec g (m_generation c)); injection Hs as <- <- <-; cbn;
        split_and!; try done; f_equal; lia.
    + injection Hs as <- <- <-; cbn. split; [f_equal; lia|done].
    + destruct (Z.eqb_spec g (m_generation c)); injection Hs as <- <- <-; cbn;
        split_and!; try done; f_equal; lia.
    + injection Hs as <- <- <-; cbn. split; [f_equal; lia|done].
    + injection Hs as <- <- <-. destruct (_ =? 1); cbn; (split; [f_equal; lia|done]).
    + injection Hs as <- <- <-. destruct (_ =? 1); cbn; (split; [f_equal; lia|done]).
    + injection Hs as <- <- <-; cbn. split; [f_equal; lia|done].
  - intros c' iv' Hs. pose proof (linear_count_range ts).
    destruct iv; cbn in Hs |- *; try done; try (by injection Hs as <- <-).
    destruct (Z.eqb_spec (m_inflight c) 0); injection Hs as <- <-; cbn; [|done].
    split; [lia|done].
Qed.

(** The sender of [gate_sending] leaves; [invalidate] then drains. *)
Lemma gate_refines_witness :
  linear_gate gate_sending = {| sh_generation := 1; sh_inflight := 1 |} /\
  linear_gate gate_sending = linear_gate
    {| g_shared := g_shared gate_sending; g_senders := <[0%nat:=SendLeave false]> (g_senders gate_sending);
       g_invalidate := g_invalidate gate_sending |}.
Proof.
  split; [by vm_compute|].
  destruct (gate_refines 2 (g_shared gate_sending) (g_senders gate_sending) (g_invalidate gate_sending)
    ltac:(lia) gate_sending_reachable) as [Hsend _].
  symmetry. exact (proj1 (Hsend 0%nat (SendBody 1) (g_shared gate_sending) (SendLeave false) false eq_refl eq_refl)).
Defined.
