(* ===== verification/Arith.v ===== *)
(** * Floating-point and real arithmetic

    The control code computes with [double]s.  Its formulas are written once,
    over the interface [Arith], and read twice: over the IEEE 754 doubles that
    the program runs on (every operation rounds to nearest, none is fused), and
    over the real numbers, where their mathematical meaning is proved. *)

From Stdlib Require Import SpecFloat Reals.
From S2P Require Import Prelude.

Declare Scope arith_scope.
Delimit Scope arith_scope with arith.

Class Arith (F : Type) := {
  of_Z : Z -> F;
  add : F -> F -> F;
  sub : F -> F -> F;
  mul : F -> F -> F;
  div : F -> F -> F;
  opp : F -> F;
  abs : F -> F;
  sqrt : F -> F;
  ltb : F -> F -> bool;
  leb : F -> F -> bool;
  finite : F -> bool;
  trunc : F -> Z  (* the conversion to an integer *)
}.

Notation "x + y" := (add x y) : arith_scope.
Notation "x - y" := (sub x y) : arith_scope.
Notation "x * y" := (mul x y) : arith_scope.
Notation "x / y" := (div x y) : arith_scope.
Notation "- x" := (opp x) : arith_scope.
Notation "x <? y" := (ltb x y) : arith_scope.
Notation "x <=? y" := (leb x y) : arith_scope.

Section arith.
Context `{Arith F}.

(** [std::max], [std::min], [std::clamp]. *)
Definition max (x y : F) : F := if ltb x y then y else x.
Definition min (x y : F) : F := if ltb y x then y else x.
Definition clamp (x low high : F) : F := if ltb x low then low else if ltb high x then high else x.

(** The literal [n]e-[k]. *)
Definition decimal (n : Z) (k : nat) : F := div (of_Z n) (of_Z (10 ^ Z.of_nat k)).
End arith.

(** ** Doubles *)

Definition double : Type := spec_float.

Definition double_trunc (x : double) : Z :=
  match x with
  | S754_finite s m e =>
      let v := if e >=? 0 then Z.pos m * 2 ^ e else Z.pos m / 2 ^ (- e) in
      if s then - v else v
  | _ => 0
  end.

Definition is_finite (x : double) : bool :=
  match x with S754_zero _ | S754_finite _ _ _ => true | _ => false end.

#[export] Instance double_arith : Arith double := {|
  of_Z z := binary_normalize 53 1024 z 0 false;
  add := SFadd 53 1024;
  sub := SFsub 53 1024;
  mul := SFmul 53 1024;
  div := SFdiv 53 1024;
  opp := SFopp;
  abs := SFabs;
  sqrt := SFsqrt 53 1024;
  ltb := SFltb;
  leb := SFleb;
  finite := is_finite;
  trunc := double_trunc
|}.

(** ** Floats

    A [float] is its bit pattern, as elsewhere in the development. *)
Definition double_of_float (bits : Z) : double :=
  let s := Z.testbit bits 31 in
  let e := Z.land (Z.shiftr bits 23) 255 in
  let m := Z.land bits 8388607 in
  if e =? 255 then (if m =? 0 then S754_infinity s else S754_nan)
  else if e =? 0 then (if m =? 0 then S754_zero s
    else binary_normalize 53 1024 (if s then - m else m) (-149) s)
  else binary_normalize 53 1024 (if s then - (m + 8388608) else m + 8388608) (e - 150) s.

Definition float_bits (x : spec_float) : Z :=
  match x with
  | S754_zero s => if s then 2 ^ 31 else 0
  | S754_infinity s => (if s then 2 ^ 31 else 0) + 255 * 2 ^ 23
  | S754_nan => 255 * 2 ^ 23 + 2 ^ 22
  | S754_finite s m e =>
      (if s then 2 ^ 31 else 0) +
      (if Z.pos m <? 2 ^ 23 then Z.pos m else (e + 150) * 2 ^ 23 + (Z.pos m - 2 ^ 23))
  end.

(** Rounding to a [float], and a [float] as a [double]. *)
Definition narrow (x : double) : spec_float :=
  match x with
  | S754_finite s m e => binary_normalize 24 128 (if s then Z.neg m else Z.pos m) e s
  | x => x
  end.
Definition widen (x : spec_float) : double :=
  match x with
  | S754_finite s m e => binary_normalize 53 1024 (if s then Z.neg m else Z.pos m) e s
  | x => x
  end.

(** [static_cast<float>]. *)
Definition float_of_double (x : double) : Z := float_bits (narrow x).

(** The literal [n]e-[k]f, as a [double]. *)
Definition float_decimal (n : Z) (k : nat) : double :=
  widen (SFdiv 24 128 (binary_normalize 24 128 n 0 false) (binary_normalize 24 128 (10 ^ Z.of_nat k) 0 false)).
(** The difference of two [float]s, which is a [float]. *)
Definition float_sub (x y : double) : double := widen (SFsub 24 128 (narrow x) (narrow y)).

Example doubles_compute :
  double_of_float 1065353216 = of_Z 1 /\ float_of_double (of_Z 1) = 1065353216 /\
  float_of_double (decimal 1 1) = 1036831949 /\ double_of_float 1 = S754_finite false 4503599627370496 (-201) /\
  float_of_double (double_of_float 1) = 1 /\ float_of_double (double_of_float 4286578688) = 4286578688 /\
  trunc (div (of_Z 7) (of_Z 2) : double) = 3.
Proof. by vm_compute. Qed.

(** ** Real numbers *)

#[export] Instance real_arith : Arith R := {|
  of_Z := IZR;
  add := Rplus;
  sub := Rminus;
  mul := Rmult;
  div := Rdiv;
  opp := Ropp;
  abs := Rabs;
  sqrt := R_sqrt.sqrt;
  ltb x y := if Rlt_dec x y then true else false;
  leb x y := if Rle_dec x y then true else false;
  finite _ := true;
  trunc := Int_part
|}.

(** The value of a finite floating-point number. *)
Definition real_of (x : spec_float) : R :=
  match x with
  | S754_finite s m e => (IZR (if s then Z.neg m else Z.pos m) * powerRZ 2 e)%R
  | _ => 0%R
  end.

Lemma R_ltb_true (x y : R) : ltb x y = true <-> (x < y)%R.
Proof. cbn. by destruct (Rlt_dec x y). Qed.
Lemma R_ltb_false (x y : R) : ltb x y = false <-> (y <= x)%R.
Proof. cbn. destruct (Rlt_dec x y); split; try done; [intros Hle; by apply Rle_not_lt in Hle|]. intros _. by apply Rnot_lt_le. Qed.
Lemma R_leb_true (x y : R) : leb x y = true <-> (x <= y)%R.
Proof. cbn. by destruct (Rle_dec x y). Qed.

Lemma R_max (x y : R) : max x y = Rmax x y.
Proof.
  unfold max. destruct (ltb x y) eqn:Hx.
  - apply R_ltb_true in Hx. symmetry. apply Rmax_right. by apply Rlt_le.
  - apply R_ltb_false in Hx. symmetry. by apply Rmax_left.
Qed.
