(* ===== verification/MPCTrajectory.v ===== *)
(** * Trajectories of the position controller

    [include/florid/detail/MPCTrajectory.hpp]: cubic segments between joint
    states, their samples, and the check of a segment against the limits of the
    joints.  The definitions are over [Arith]; the theorem is about their real
    reading, where a segment that passes the check stays within the limits at
    every instant, not only where the check looked. *)

From Stdlib Require Import Reals Lra Psatz.
From S2P Require Import Prelude Arith.

(** ** Data *)

Section trajectory.
Context {F : Type} `{Arith F}.

(** Positions and velocities of the six joints. *)
Record MPCJointState := { js_q : list F; js_dq : list F }.
Record MPCJointLimits := {
  m_lower : list F; m_upper : list F; m_velocity : list F; m_acceleration : list F
}.

(** One joint's limits. *)
Record limits := { l_lower : F; l_upper : F; l_velocity : F; l_acceleration : F }.
Definition at_joint (l : list F) (i : nat) : F := nth i l (of_Z 0).
Definition joint_limits (l : MPCJointLimits) (i : nat) : limits := {|
  l_lower := at_joint (m_lower l) i; l_upper := at_joint (m_upper l) i;
  l_velocity := at_joint (m_velocity l) i; l_acceleration := at_joint (m_acceleration l) i |}.

(** One joint's cubic, and [MPCCubic]. *)
Record cubic := { m_a : F; m_b : F; m_c : F; m_d : F }.
Record MPCCubic := { m_joints : list cubic; m_dt : F }.

Local Open Scope arith_scope.

(** ** Segments *)

Definition joint_cubic (q0 dq0 q1 dq1 dt : F) : cubic :=
  let delta := q1 - q0 in {|
    m_a := of_Z (-2) * delta + dt * (dq0 + dq1);
    m_b := of_Z 3 * delta - dt * (of_Z 2 * dq0 + dq1);
    m_c := dt * dq0;
    m_d := q0
  |}.

Definition make_cubic (from to : MPCJointState) (dt : F) : MPCCubic := {|
  m_joints := map (fun i => joint_cubic (at_joint (js_q from) i) (at_joint (js_dq from) i)
    (at_joint (js_q to) i) (at_joint (js_dq to) i) dt) (seq 0 6);
  m_dt := dt |}.

Definition position (k : cubic) (u : F) : F := ((m_a k * u + m_b k) * u + m_c k) * u + m_d k.
Definition velocity (k : cubic) (dt u : F) : F :=
  ((of_Z 3 * m_a k * u + of_Z 2 * m_b k) * u + m_c k) / dt.

Definition cubic_sample (k : MPCCubic) (time : F) : MPCJointState :=
  let u := clamp (time / m_dt k) (of_Z 0) (of_Z 1) in {|
    js_q := map (fun j => position j u) (m_joints k);
    js_dq := map (fun j => velocity j (m_dt k) u) (m_joints k)
  |}.

Definition margin : F := decimal 1 7.
Definition position_ok (l : limits) (k : cubic) (u : F) : bool :=
  let q := position k u in
  (l_lower l - margin <=? q) && (q <=? l_upper l + margin).
Definition velocity_ok (l : limits) (k : cubic) (dt u : F) : bool :=
  abs (velocity k dt u) <=? l_velocity l + margin.

Definition inside_unit (u : F) : bool := (of_Z 0 <? u) && (u <? of_Z 1).
Definition tiny : F := decimal 1 15.

(** The extremum of the velocity, and those of the position. *)
Definition velocity_extremum_ok (l : limits) (k : cubic) (dt : F) : bool :=
  let root := - m_b k / (of_Z 3 * m_a k) in
  negb (inside_unit root && negb (velocity_ok l k dt root)).
Definition position_extremum_ok (l : limits) (k : cubic) (disc sign : F) : bool :=
  let u := (- m_b k + sign * sqrt disc) / (of_Z 3 * m_a k) in
  negb (inside_unit u && negb (position_ok l k u)).
Definition extrema_ok (l : limits) (k : cubic) (dt : F) : bool :=
  if tiny <? abs (m_a k) then
    velocity_extremum_ok l k dt &&
    (let disc := m_b k * m_b k - of_Z 3 * m_a k * m_c k in
     if of_Z 0 <=? disc
     then position_extremum_ok l k disc (of_Z (-1)) && position_extremum_ok l k disc (of_Z 1)
     else true)
  else if tiny <? abs (m_b k) then
    let u := - m_c k / (of_Z 2 * m_b k) in
    negb (inside_unit u && negb (position_ok l k u))
  else true.

Definition acceleration_exceeded (l : limits) (k : cubic) (dt : F) : bool :=
  l_acceleration l + margin <?
    max (abs (of_Z 2 * m_b k)) (abs (of_Z 6 * m_a k + of_Z 2 * m_b k)) / (dt * dt).

Definition joint_within (l : limits) (k : cubic) (dt : F) : bool :=
  finite (m_a k) && finite (m_b k) && finite (m_c k) && finite (m_d k) &&
  position_ok l k (of_Z 0) && position_ok l k (of_Z 1) &&
  velocity_ok l k dt (of_Z 0) && velocity_ok l k dt (of_Z 1) &&
  negb (acceleration_exceeded l k dt) && extrema_ok l k dt.

(** The loop over the joints. *)
Fixpoint joints_within (i : nat) (ks : list cubic) (l : MPCJointLimits) (dt : F) : bool :=
  match ks with
  | [] => true
  | k :: ks' => joint_within (joint_limits l i) k dt && joints_within (S i) ks' l dt
  end.
Definition within (k : MPCCubic) (l : MPCJointLimits) : bool :=
  finite (m_dt k) && negb (m_dt k <=? of_Z 0) && joints_within 0 (m_joints k) l (m_dt k).

(** The check of all the segments of a plan, in [MPCSession::outputLoop]. *)
Fixpoint segments_within (knots : list MPCJointState) (dt : F) (lim : MPCJointLimits) : bool :=
  match knots with
  | p :: ((q :: _) as rest) => within (make_cubic p q dt) lim && segments_within rest dt lim
  | _ => true
  end.

(** [sampleMPC], for the [N] knots of a plan. *)
Definition state0 : MPCJointState := {| js_q := repeat (of_Z 0) 6; js_dq := repeat (of_Z 0) 6 |}.
Definition sampleMPC (knots : list MPCJointState) (dt time : F) : MPCJointState :=
  let n := Z.of_nat (length knots) in
  let t := clamp time (of_Z 0) (dt * of_Z (n - 1)) in
  let i := Z.min (trunc (t / dt)) (n - 2) in
  cubic_sample (make_cubic (nth (Z.to_nat i) knots state0) (nth (Z.to_nat (i + 1)) knots state0) dt)
    (t - of_Z i * dt).
End trajectory.

(** ** Real cubics *)

Section real.
Local Open Scope R_scope.

Lemma quadratic_upper a b c m u :
  c <= m -> a + b + c <= m ->
  (a <> 0 -> 0 < - b / (2 * a) < 1 -> a * (- b / (2 * a)) ^ 2 + b * (- b / (2 * a)) + c <= m) ->
  0 <= u <= 1 -> a * u ^ 2 + b * u + c <= m.
Proof.
  intros H0 H1 Hv Hu. destruct (Rle_dec 0 a) as [Ha|Ha].
  { assert (0 <= a * (u * (1 - u))) by (apply Rmult_le_pos; [done|apply Rmult_le_pos; lra]). nra. }
  apply Rnot_le_lt in Ha.
  remember (- b / (2 * a)) as v eqn:Hv'. assert (b = - 2 * a * v) as Hb by (rewrite Hv'; field; lra).
  clear Hv'. subst b.
  assert (forall x y, 0 <= x -> 0 <= y -> a * (x * y) <= 0) as Hn.
  { intros x y Hx Hy. assert (0 <= - a * (x * y)); [|lra].
    apply Rmult_le_pos; [lra|]. by apply Rmult_le_pos. }
  destruct (Rle_dec v 0); [pose proof (Hn u (u - 2 * v) ltac:(lra) ltac:(lra)); lra|].
  destruct (Rle_dec 1 v); [pose proof (Hn (1 - u) (2 * v - u - 1) ltac:(lra) ltac:(lra)); lra|].
  specialize (Hv ltac:(lra) ltac:(lra)). pose proof (Hn ((u - v) ^ 2) 1 ltac:(apply pow2_ge_0) ltac:(lra)). lra.
Qed.

Definition cubic_fun (a b c d x : R) : R := ((a * x + b) * x + c) * x + d.

Lemma cubic_derivative a b c d x :
  derivable_pt_lim (cubic_fun a b c d) x (3 * a * x ^ 2 + 2 * b * x + c).
Proof.
  unfold cubic_fun.
  replace (3 * a * x ^ 2 + 2 * b * x + c) with
    ((((a * 1 + 0) * x + (a * x + b) * 1) + 0) * x + ((a * x + b) * x + c) * 1 + 0) by ring.
  assert (derivable_pt_lim (fun x => a * x + b) x (a * 1 + 0)) as H1.
  { apply (derivable_pt_lim_plus (fun x => a * x) (fun _ => b)); [|apply derivable_pt_lim_const].
    apply (derivable_pt_lim_scal id). apply derivable_pt_lim_id. }
  assert (derivable_pt_lim (fun x => (a * x + b) * x + c) x ((a * 1 + 0) * x + (a * x + b) * 1 + 0)) as H2.
  { apply (derivable_pt_lim_plus (fun x => (a * x + b) * x) (fun _ => c)); [|apply derivable_pt_lim_const].
    apply (derivable_pt_lim_mult (fun x => a * x + b) id); [done|apply derivable_pt_lim_id]. }
  apply (derivable_pt_lim_plus (fun x => ((a * x + b) * x + c) * x) (fun _ => d)); [|apply derivable_pt_lim_const].
  apply (derivable_pt_lim_mult (fun x => (a * x + b) * x + c) id); [done|apply derivable_pt_lim_id].
Qed.

(** A cubic takes its maximum on [0, 1] at an end or where its derivative is 0. *)
Lemma cubic_upper a b c d m u :
  d <= m -> a + b + c + d <= m ->
  (forall r, 0 < r < 1 -> 3 * a * r ^ 2 + 2 * b * r + c = 0 -> cubic_fun a b c d r <= m) ->
  0 <= u <= 1 -> cubic_fun a b c d u <= m.
Proof.
  intros H0 H1 Hr Hu. set (f := cubic_fun a b c d).
  assert (forall x, derivable_pt f x) as Hd by (intros x; eexists; apply cubic_derivative).
  destruct (continuity_ab_maj f 0 1 ltac:(lra)) as (x & Hmax & Hx).
  { intros y _. apply derivable_continuous_pt, Hd. }
  apply Rle_trans with (f x); [by apply Hmax|].
  destruct (Req_dec x 0) as [->|Hx0]; [unfold f, cubic_fun; lra|].
  destruct (Req_dec x 1) as [->|Hx1]; [unfold f, cubic_fun; lra|].
  apply Hr; [lra|]. rewrite <- (derive_pt_eq_0 f x _ (Hd x) (cubic_derivative a b c d x)).
  apply (deriv_maximum f 0 1); [lra|lra|]. intros y Hy0 Hy1. apply Hmax. lra.
Qed.

(** The roots of the derivative are those that the check computes. *)
Lemma derivative_roots a b c r :
  a <> 0 -> 3 * a * r ^ 2 + 2 * b * r + c = 0 ->
  0 <= b * b - 3 * a * c /\
  (r = (- b + -1 * R_sqrt.sqrt (b * b - 3 * a * c)) / (3 * a) \/
   r = (- b + 1 * R_sqrt.sqrt (b * b - 3 * a * c)) / (3 * a)).
Proof.
  intros Ha Hr. assert ((3 * a * r + b) * (3 * a * r + b) = b * b - 3 * a * c) as Hsq by nra.
  assert (0 <= b * b - 3 * a * c) as Hd by (rewrite <- Hsq; apply Rle_0_sqr).
  split; [done|]. rewrite <- Hsq. destruct (Rle_dec 0 (3 * a * r + b)) as [Hp|Hp].
  - right. rewrite sqrt_square by done. field. lra.
  - left. apply Rnot_le_lt in Hp.
    replace ((3 * a * r + b) * (3 * a * r + b)) with (- (3 * a * r + b) * - (3 * a * r + b)) by ring.
    rewrite sqrt_square by lra. field. lra.
Qed.
End real.

(** ** The check is sound *)

Section sound.
Local Open Scope R_scope.
Implicit Types (l : limits (F:=R)) (k : cubic (F:=R)) (dt u : R).

Lemma R_opp_cubic a b c d x : cubic_fun (- a) (- b) (- c) (- d) x = - cubic_fun a b c d x.
Proof. unfold cubic_fun. ring. Qed.

Lemma position_fun k u : position k u = cubic_fun (m_a k) (m_b k) (m_c k) (m_d k) u.
Proof. done. Qed.

Lemma position_ok_spec l k u :
  position_ok l k u = true <-> l_lower l - margin <= position k u <= l_upper l + margin.
Proof. unfold position_ok. rewrite andb_true_iff, !R_leb_true. done. Qed.

Lemma inside_unit_spec u : inside_unit u = true <-> 0 < u < 1.
Proof. unfold inside_unit. rewrite andb_true_iff, !R_ltb_true. done. Qed.

(** The checks have the form: if the point is inside, it is fine. *)
Lemma guarded_ok (p q : bool) : negb (p && negb q) = true -> p = true -> q = true.
Proof. by destruct p, q. Qed.

Lemma Rabs_bounds (x y : R) : Rabs x <= y -> - y <= x <= y.
Proof. unfold Rabs. destruct (Rcase_abs x); lra. Qed.

Lemma tiny_pos : 0 < @tiny R _.
Proof. change (0 < 1 / IZR (10 ^ 15)). apply Rdiv_lt_0_compat; [lra|by apply IZR_lt]. Qed.

(** A bound that the ends and the extrema respect holds everywhere, up to the
    terms that the check neglects: for upper bounds, and by symmetry for lower
    ones. *)
Lemma cubic_bound a b c d m u :
  d <= m -> a + b + c + d <= m ->
  (tiny < Rabs a -> forall r, 0 < r < 1 -> 3 * a * r ^ 2 + 2 * b * r + c = 0 -> cubic_fun a b c d r <= m) ->
  (Rabs a <= tiny -> tiny < Rabs b -> 0 < - c / (2 * b) < 1 -> cubic_fun a b c d (- c / (2 * b)) <= m) ->
  0 <= u <= 1 -> cubic_fun a b c d u <= m + 2 * tiny.
Proof.
  intros H0 H1 Hroot Hvertex Hu. pose proof tiny_pos as Ht. destruct (Rlt_dec tiny (Rabs a)) as [Ha|Ha].
  { pose proof (cubic_upper a b c d m u H0 H1 (Hroot Ha) Hu). lra. }
  apply Rnot_lt_le in Ha. specialize (Hvertex Ha).
  apply Rabs_bounds in Ha as [Ha1 Ha2].
  assert (forall x, 0 <= x <= 1 -> - tiny <= a * x ^ 3 <= tiny) as Hcube.
  { intros x Hx. assert (0 <= x ^ 3 <= 1) by (split; [apply pow_le; lra|rewrite <- (pow1 3); apply pow_incr; lra]). nra. }
  assert (forall x, cubic_fun a b c d x = b * x ^ 2 + c * x + d + a * x ^ 3) as Hfun by (intros; unfold cubic_fun; ring).
  pose proof (Hcube u Hu) as Hcu. rewrite Hfun in *.
  destruct (Rlt_dec tiny (Rabs b)) as [Hb|Hb].
  - assert (b * u ^ 2 + c * u + d <= m + tiny); [|lra].
    apply quadratic_upper; [lra|lra| |done]. intros Hb0 Hv. specialize (Hvertex Hb Hv).
    pose proof (Hcube _ (conj (Rlt_le _ _ (proj1 Hv)) (Rlt_le _ _ (proj2 Hv)))). lra.
  - apply Rnot_lt_le in Hb. apply Rabs_bounds in Hb as [Hb1 Hb2].
    replace (b * u ^ 2 + c * u + d + a * u ^ 3) with
      ((1 - u) * d + u * (a + b + c + d) + b * (u ^ 2 - u) + a * (u ^ 3 - u)) by ring.
    assert (0 <= u * (1 - u)) as Hu1 by (apply Rmult_le_pos; lra).
    assert (0 <= u * (1 - u) * (1 + u)) as Hu2 by (apply Rmult_le_pos; lra).
    assert (0 <= u ^ 2 /\ 0 <= u ^ 3) as [Hp2 Hp3] by (split; apply pow_le; lra).
    assert (0 <= u - u ^ 2 <= 1) as Hq by lra. assert (0 <= u - u ^ 3 <= 1) as Hc by lra.
    assert ((1 - u) * d + u * (a + b + c + d) <= m) by nra.
    assert (b * (u ^ 2 - u) <= tiny) by nra. assert (a * (u ^ 3 - u) <= tiny) by nra. lra.
Qed.

Lemma leb_tiny (x : R) : ltb tiny (abs x) = true <-> tiny < Rabs x.
Proof. apply R_ltb_true. Qed.

(** What [extrema_ok] establishes about the position. *)
Lemma extrema_position l k dt :
  extrema_ok l k dt = true ->
  (tiny < Rabs (m_a k) -> forall r, 0 < r < 1 -> 3 * m_a k * r ^ 2 + 2 * m_b k * r + m_c k = 0 ->
     position_ok l k r = true) /\
  (Rabs (m_a k) <= tiny -> tiny < Rabs (m_b k) -> 0 < - m_c k / (2 * m_b k) < 1 ->
     position_ok l k (- m_c k / (2 * m_b k)) = true).
Proof.
  intros H. unfold extrema_ok in H. destruct (ltb tiny (abs (m_a k))) eqn:Ha.
  - apply leb_tiny in Ha. split; [|lra]. intros _ r Hr Hroot. apply andb_true_iff in H as [_ H].
    destruct (derivative_roots (m_a k) (m_b k) (m_c k) r) as [Hd Hcases]; [|done|].
    { intros Ha0. rewrite Ha0, Rabs_R0 in Ha. pose proof tiny_pos. lra. }
    cbv zeta in H. apply R_leb_true in Hd.
    change (m_b k * m_b k - 3 * m_a k * m_c k)%R with (sub (mul (m_b k) (m_b k)) (mul (mul (of_Z 3) (m_a k)) (m_c k))) in Hd.
    change 0 with (@of_Z R _ 0%Z) in Hd. rewrite Hd in H. apply andb_true_iff in H as [H1 H2].
    destruct Hcases as [-> | ->]; (eapply guarded_ok; [exact H1 || exact H2|]); by apply inside_unit_spec.
  - split; [by intros Ha'%leb_tiny; rewrite Ha in Ha'|]. intros _ Hb%leb_tiny Hv. rewrite Hb in H.
    eapply guarded_ok; [exact H|]. by apply inside_unit_spec.
Qed.

Lemma joint_position_sound l k dt u :
  joint_within l k dt = true -> 0 <= u <= 1 ->
  l_lower l - margin - 2 * tiny <= position k u <= l_upper l + margin + 2 * tiny.
Proof.
  unfold joint_within. rewrite !andb_true_iff. intros H Hu. destruct_and!.
  match goal with H : extrema_ok _ _ _ = true |- _ => apply extrema_position in H as [Hroot Hvertex] end.
  repeat match goal with H : position_ok l k _ = true |- _ => apply position_ok_spec in H end.
  rewrite !position_fun in *. cbn [of_Z real_arith] in *.
  assert (cubic_fun (m_a k) (m_b k) (m_c k) (m_d k) 0 = m_d k) as E0 by (unfold cubic_fun; ring).
  assert (cubic_fun (m_a k) (m_b k) (m_c k) (m_d k) 1 = m_a k + m_b k + m_c k + m_d k) as E1 by (unfold cubic_fun; ring).
  rewrite E0, E1 in *. split.
  - assert (cubic_fun (- m_a k) (- m_b k) (- m_c k) (- m_d k) u <= - (l_lower l - margin) + 2 * tiny) as Hn.
    { apply cubic_bound; rewrite ?Rabs_Ropp; try lra; try done.
      - intros Ha r Hr Hz. rewrite R_opp_cubic.
        assert (position_ok l k r = true) as Hp%position_ok_spec by (apply Hroot; [done|done|lra]).
        rewrite position_fun in Hp. lra.
      - intros Ha Hb. assert (- - m_c k / (2 * - m_b k) = - m_c k / (2 * m_b k)) as ->.
        { field. intros Hb0. rewrite Hb0, Rabs_R0 in Hb. pose proof tiny_pos. lra. }
        intros Hv. rewrite R_opp_cubic. specialize (Hvertex Ha Hb Hv). apply position_ok_spec in Hvertex.
        rewrite position_fun in Hvertex. lra. }
    rewrite R_opp_cubic in Hn. lra.
  - apply cubic_bound; try lra; try done.
    + intros Ha r Hr Hz. specialize (Hroot Ha r Hr Hz). apply position_ok_spec in Hroot.
      rewrite position_fun in Hroot. lra.
    + intros Ha Hb Hv. specialize (Hvertex Ha Hb Hv). apply position_ok_spec in Hvertex.
      rewrite position_fun in Hvertex. lra.
Qed.

Lemma velocity_fun k dt u : velocity k dt u = (3 * m_a k * u ^ 2 + 2 * m_b k * u + m_c k) / dt.
Proof. unfold velocity. cbn [add mul div of_Z real_arith]. f_equal. ring. Qed.

Lemma velocity_ok_spec l k dt u :
  0 < dt -> velocity_ok l k dt u = true <->
  Rabs (3 * m_a k * u ^ 2 + 2 * m_b k * u + m_c k) <= (l_velocity l + margin) * dt.
Proof.
  intros Hdt. unfold velocity_ok. rewrite R_leb_true, velocity_fun. cbn [abs add real_arith].
  unfold Rdiv. rewrite Rabs_mult, (Rabs_right (/ dt)) by (left; by apply Rinv_0_lt_compat).
  set (g := Rabs _). set (m := Rplus _ _). split; intros Hle.
  - replace g with (g * / dt * dt) by (field; lra). apply Rmult_le_compat_r; [lra|done].
  - replace m with (m * dt * / dt) by (field; lra).
    apply Rmult_le_compat_r; [left; by apply Rinv_0_lt_compat|done].
Qed.

(** A quadratic that passes the check at the ends and at its vertex, when that
    is looked at. *)
Lemma quadratic_bound a b c m u :
  c <= m -> 3 * a + 2 * b + c <= m ->
  (tiny < Rabs a -> 0 < - b / (3 * a) < 1 ->
     3 * a * (- b / (3 * a)) ^ 2 + 2 * b * (- b / (3 * a)) + c <= m) ->
  0 <= u <= 1 -> 3 * a * u ^ 2 + 2 * b * u + c <= m + tiny.
Proof.
  intros H0 H1 Hv Hu. pose proof tiny_pos as Ht. destruct (Rlt_dec tiny (Rabs a)) as [Ha|Ha].
  - assert (3 * a * u ^ 2 + 2 * b * u + c <= m); [|lra].
    apply quadratic_upper; [done|done| |done]. intros Ha0.
    assert (- (2 * b) / (2 * (3 * a)) = - b / (3 * a)) as -> by (field; lra). by apply Hv.
  - apply Rnot_lt_le, Rabs_bounds in Ha as [Ha1 Ha2].
    replace (3 * a * u ^ 2 + 2 * b * u + c) with
      ((1 - u) * c + u * (3 * a + 2 * b + c) + 3 * (a * (u ^ 2 - u))) by ring.
    assert (0 <= u * (1 - u) <= 1 / 4) as Hq.
    { split; [apply Rmult_le_pos; lra|]. pose proof (pow2_ge_0 (u - 1 / 2)). lra. }
    assert ((1 - u) * c + u * (3 * a + 2 * b + c) <= m) by nra.
    assert (a * (u ^ 2 - u) <= tiny * (1 / 4)) by nra. lra.
Qed.

Lemma joint_velocity_sound l k dt u :
  0 < dt -> joint_within l k dt = true -> 0 <= u <= 1 ->
  Rabs (velocity k dt u) <= l_velocity l + margin + tiny / dt.
Proof.
  intros Hdt. unfold joint_within. rewrite !andb_true_iff. intros H Hu. destruct_and!.
  repeat match goal with H : velocity_ok l k dt _ = true |- _ =>
    apply velocity_ok_spec, Rabs_bounds in H as [? ?]; [|done] end.
  match goal with H : extrema_ok _ _ _ = true |- _ => rename H into Hext end.
  cbn [of_Z real_arith] in *. set (m := (l_velocity l + margin) * dt) in *.
  assert (tiny < Rabs (m_a k) -> 0 < - m_b k / (3 * m_a k) < 1 ->
    Rabs (3 * m_a k * (- m_b k / (3 * m_a k)) ^ 2 + 2 * m_b k * (- m_b k / (3 * m_a k)) + m_c k) <= m) as Hv.
  { intros Ha Hin. unfold extrema_ok in Hext. apply leb_tiny in Ha. rewrite Ha in Hext.
    apply andb_true_iff in Hext as [Hext _]. apply velocity_ok_spec; [done|].
    eapply guarded_ok; [exact Hext|]. by apply inside_unit_spec. }
  assert (m_a k * 0 = 0 /\ m_b k * 0 = 0) as [Z1 Z2] by lra.
  assert (3 * m_a k * u ^ 2 + 2 * m_b k * u + m_c k <= m + tiny) as Hup.
  { apply quadratic_bound; try lra; try done. intros Ha Hin.
    destruct (Rabs_bounds _ _ (Hv Ha Hin)) as [_ ?]. done. }
  assert (3 * - m_a k * u ^ 2 + 2 * - m_b k * u + - m_c k <= m + tiny) as Hdown.
  { apply quadratic_bound; try lra; try done. rewrite Rabs_Ropp. intros Ha.
    assert (- - m_b k / (3 * - m_a k) = - m_b k / (3 * m_a k)) as ->.
    { field. intros Ha0. rewrite Ha0, Rabs_R0 in Ha. pose proof tiny_pos. lra. }
    intros Hin. destruct (Rabs_bounds _ _ (Hv Ha Hin)) as [? _]. lra. }
  rewrite velocity_fun. unfold Rdiv.
  rewrite Rabs_mult, (Rabs_right (/ dt)) by (left; by apply Rinv_0_lt_compat).
  apply Rmult_le_reg_r with dt; [done|]. rewrite Rmult_assoc, Rinv_l by lra.
  replace ((l_velocity l + margin + tiny * / dt) * dt) with (m + tiny) by (unfold m; field; lra).
  rewrite Rmult_1_r. apply Rabs_le. lra.
Qed.

(** The second derivative in time. *)
Definition acceleration (k : cubic (F:=R)) (dt u : R) : R := (6 * m_a k * u + 2 * m_b k) / (dt * dt).

Lemma joint_acceleration_sound l k dt u :
  0 < dt -> joint_within l k dt = true -> 0 <= u <= 1 ->
  Rabs (acceleration k dt u) <= l_acceleration l + margin.
Proof.
  intros Hdt. unfold joint_within. rewrite !andb_true_iff. intros H Hu. destruct_and!.
  match goal with H : negb (acceleration_exceeded _ _ _) = true |- _ => rename H into Hacc end.
  apply negb_true_iff, R_ltb_false in Hacc. rewrite R_max in Hacc. cbn [abs mul add of_Z div real_arith] in Hacc.
  set (m := Rmax (Rabs (2 * m_b k)) (Rabs (6 * m_a k + 2 * m_b k))) in *.
  destruct (Rabs_bounds (2 * m_b k) m (Rmax_l _ _)) as [B1 B2].
  destruct (Rabs_bounds (6 * m_a k + 2 * m_b k) m (Rmax_r _ _)) as [A1 A2].
  assert (0 < dt * dt) as Hd2 by by apply Rmult_lt_0_compat.
  apply Rle_trans with (m / (dt * dt)); [|done]. unfold acceleration, Rdiv.
  rewrite Rabs_mult, (Rabs_right (/ (dt * dt))) by (left; by apply Rinv_0_lt_compat).
  apply Rmult_le_compat_r; [left; by apply Rinv_0_lt_compat|].
  replace (6 * m_a k * u + 2 * m_b k) with ((1 - u) * (2 * m_b k) + u * (6 * m_a k + 2 * m_b k)) by ring.
  apply Rabs_le. split; nra.
Qed.
End sound.

(** ** Time

    The samples against time: the velocity is the derivative of the position,
    and the acceleration that of the velocity. *)

Section time.
Local Open Scope R_scope.
Implicit Types (l : limits (F:=R)) (k : cubic (F:=R)) (dt u t : R).

Lemma affine_derivative dt t : dt <> 0 -> derivable_pt_lim (fun t => t / dt) t (/ dt).
Proof.
  intros Hdt. replace (/ dt) with (1 * / dt + t * 0) by lra. unfold Rdiv.
  apply (derivable_pt_lim_mult id (fun _ => / dt)); [apply derivable_pt_lim_id|apply derivable_pt_lim_const].
Qed.

Lemma velocity_derivative k dt t :
  dt <> 0 -> derivable_pt_lim (fun t => position k (t / dt)) t (velocity k dt (t / dt)).
Proof.
  intros Hdt. rewrite velocity_fun. unfold Rdiv at 2.
  apply (derivable_pt_lim_comp (fun t => t / dt) (fun u => position k u)); [by apply affine_derivative|].
  apply cubic_derivative.
Qed.

Lemma acceleration_derivative k dt t :
  dt <> 0 -> derivable_pt_lim (fun t => velocity k dt (t / dt)) t (acceleration k dt (t / dt)).
Proof.
  intros Hdt. unfold acceleration.
  replace ((6 * m_a k * (t / dt) + 2 * m_b k) / (dt * dt)) with
    ((3 * 0 * (t / dt) ^ 2 + 2 * (3 * m_a k / dt) * (t / dt) + 2 * m_b k / dt) * / dt) by (field; lra).
  apply (derivable_pt_lim_comp (fun t => t / dt) (fun u => velocity k dt u)); [by apply affine_derivative|].
  apply (derivable_pt_lim_ext (cubic_fun 0 (3 * m_a k / dt) (2 * m_b k / dt) (m_c k / dt))); [|apply cubic_derivative].
  intros u. rewrite velocity_fun. unfold cubic_fun. field. lra.
Qed.

(** A segment joins its end points with their velocities. *)
Lemma segment_ends q0 dq0 q1 dq1 dt :
  dt <> 0 -> let k := joint_cubic q0 dq0 q1 dq1 dt in
  position k 0 = q0 /\ velocity k dt 0 = dq0 /\ position k 1 = q1 /\ velocity k dt 1 = dq1.
Proof.
  intros Hdt. cbv zeta. rewrite !velocity_fun, !position_fun. unfold cubic_fun, joint_cubic.
  cbn. split_and!; field; lra.
Qed.

Lemma clamp_unit (x : R) : 0 <= clamp x (of_Z 0) (of_Z 1) <= 1.
Proof.
  unfold clamp. destruct (ltb x (of_Z 0)) eqn:H0; [cbn; lra|]. apply R_ltb_false in H0.
  destruct (ltb (of_Z 1) x) eqn:H1; [cbn; lra|]. apply R_ltb_false in H1. cbn in *. lra.
Qed.

(** The state of joint [i] respects its limits, up to what the check neglects. *)
Definition respects (l : limits (F:=R)) (dt q dq : R) : Prop :=
  l_lower l - margin - 2 * tiny <= q <= l_upper l + margin + 2 * tiny /\
  Rabs dq <= l_velocity l + margin + tiny / dt.

Lemma joints_within_joint i0 ks lim dt i k :
  joints_within i0 ks lim dt = true -> ks !! i = Some k ->
  joint_within (joint_limits lim (i0 + i)) k dt = true.
Proof.
  revert i0 i. induction ks as [|k' ks IH]; intros i0 i; [done|].
  intros [Hk Hks]%andb_true_iff. destruct i as [|i]; cbn.
  - intros [= <-]. by rewrite Nat.add_0_r.
  - intros Hi. specialize (IH _ _ Hks Hi). by rewrite Nat.add_succ_r.
Qed.

Lemma at_joint_map {A} (f : A -> R) (xs : list A) i x :
  xs !! i = Some x -> at_joint (map f xs) i = f x.
Proof.
  intros Hx. unfold at_joint. apply nth_lookup_Some. by rewrite list_lookup_fmap, Hx.
Qed.

Lemma within_joint (c : MPCCubic (F:=R)) lim i k :
  within c lim = true -> m_joints c !! i = Some k ->
  0 < m_dt c /\ joint_within (joint_limits lim i) k (m_dt c) = true.
Proof.
  unfold within. rewrite !andb_true_iff. intros [[_ Hdt] Hks] Hi. split.
  - apply negb_true_iff in Hdt. apply Rnot_le_lt. intros Hle%R_leb_true. cbn in *. congruence.
  - by apply (joints_within_joint 0 (m_joints c)).
Qed.

Lemma sample_respects (c : MPCCubic (F:=R)) lim i k time :
  within c lim = true -> m_joints c !! i = Some k ->
  respects (joint_limits lim i) (m_dt c)
    (at_joint (js_q (cubic_sample c time)) i) (at_joint (js_dq (cubic_sample c time)) i).
Proof.
  intros Hc Hi. destruct (within_joint c lim i k Hc Hi) as [Hdt Hk].
  pose proof (clamp_unit (div time (m_dt c))) as Hu. unfold cubic_sample. cbv zeta. cbn [js_q js_dq].
  rewrite !(at_joint_map _ _ i k Hi). split; [by eapply joint_position_sound|by apply joint_velocity_sound].
Qed.
End time.

(** ** Results *)

Section results.
Local Open Scope R_scope.

(** The limits of a joint at the fraction [u] of a segment, up to [e]. *)
Definition obeys (e : R) (l : limits) (k : cubic) (dt u : R) : Prop :=
  l_lower l - margin - 2 * e <= position k u <= l_upper l + margin + 2 * e /\
  Rabs (velocity k dt u) <= l_velocity l + margin + e / dt /\
  Rabs (acceleration k dt u) <= l_acceleration l + margin.

Lemma joint_within_sound l k dt u :
  0 < dt -> joint_within l k dt = true -> 0 <= u <= 1 -> obeys tiny l k dt u.
Proof.
  intros Hdt Hk Hu. split_and!;
    [by eapply joint_position_sound|by eapply joint_position_sound|by apply joint_velocity_sound
    |by apply joint_acceleration_sound].
Qed.

Lemma guard_holds (p q : bool) : (p = true -> q = true) -> negb (p && negb q) = true.
Proof. destruct p, q; try done. by intros Hp; specialize (Hp eq_refl). Qed.

(** No instant that the check looks at lies outside the segment. *)
Lemma joint_within_complete (l : limits) (k : cubic) dt :
  0 < dt -> (forall u, 0 <= u <= 1 -> obeys 0 l k dt u) -> joint_within l k dt = true.
Proof.
  intros Hdt Hall.
  assert (forall u, 0 <= u <= 1 -> position_ok l k u = true) as Hp.
  { intros u Hu. apply position_ok_spec. destruct (Hall u Hu) as [? _]. lra. }
  assert (forall u, 0 <= u <= 1 -> velocity_ok l k dt u = true) as Hv.
  { intros u Hu. unfold velocity_ok. apply R_leb_true. destruct (Hall u Hu) as (_ & ? & _).
    unfold Rdiv in *. cbn in *. lra. }
  assert (forall u, inside_unit u = true -> position_ok l k u = true /\ velocity_ok l k dt u = true) as Hin.
  { intros u Hu%inside_unit_spec. split; [apply Hp|apply Hv]; lra. }
  unfold joint_within. rewrite !andb_true_iff. split_and!; try done; try (apply Hp; cbn; lra); try (apply Hv; cbn; lra).
  - apply negb_true_iff, R_ltb_false. rewrite R_max.
    destruct (Hall 0 ltac:(lra)) as (_ & _ & H0). destruct (Hall 1 ltac:(lra)) as (_ & _ & H1).
    unfold acceleration in H0, H1. unfold Rdiv in H0, H1. assert (0 < dt * dt) by by apply Rmult_lt_0_compat.
    rewrite Rabs_mult, (Rabs_right (/ (dt * dt))) in H0, H1 by (left; by apply Rinv_0_lt_compat).
    cbn [abs mul add of_Z div real_arith].
    replace (6 * m_a k * 0 + 2 * m_b k) with (2 * m_b k) in H0 by ring.
    replace (6 * m_a k * 1 + 2 * m_b k) with (6 * m_a k + 2 * m_b k) in H1 by ring.
    unfold Rmax. by destruct (Rle_dec _ _).
  - unfold extrema_ok, velocity_extremum_ok, position_extremum_ok.
    repeat match goal with |- context [if ?b then _ else _] => destruct b end; try done;
      rewrite ?andb_true_iff; split_and?; try done; apply guard_holds; intros Hu; by apply Hin in Hu as [? ?].
Qed.

Lemma joints_within_intro ks lim dt i0 :
  (forall i k, ks !! i = Some k -> joint_within (joint_limits lim (i0 + i)) k dt = true) ->
  joints_within i0 ks lim dt = true.
Proof.
  revert i0. induction ks as [|k ks IH]; intros i0 Hks; [done|]. cbn. apply andb_true_iff. split.
  - rewrite <- (Nat.add_0_r i0). by apply Hks.
  - apply IH. intros i k' Hi. rewrite Nat.add_succ_l, <- Nat.add_succ_r. by apply Hks.
Qed.

Lemma within_complete (c : MPCCubic) (lim : MPCJointLimits) :
  0 < m_dt c ->
  (forall i k u, m_joints c !! i = Some k -> 0 <= u <= 1 -> obeys 0 (joint_limits lim i) k (m_dt c) u) ->
  within c lim = true.
Proof.
  intros Hdt Hall. unfold within. rewrite !andb_true_iff. split_and!; [done| |].
  - apply negb_true_iff. destruct (leb _ _) eqn:Hle; [|done]. apply R_leb_true in Hle. cbn in Hle. lra.
  - apply joints_within_intro. intros i k Hi. apply joint_within_complete; [done|].
    intros u. by apply Hall.
Qed.

(** C15: the check of a segment against the limits ([MPCCubic::within]), over the
    real numbers, decides them at every instant although it computes only the
    ends and the extrema.  A segment that it accepts respects the limits, widened
    by its margin of 1e-7, throughout, up to the 1e-15 below which it takes a
    coefficient for 0: in position, in the velocity (the derivative of the
    position) and in the acceleration (the derivative of the velocity).  A
    segment that respects the widened limits throughout is accepted. *)
Theorem within_decides_limits (c : MPCCubic) (lim : MPCJointLimits) :
  0 < m_dt c ->
  (within c lim = true -> forall i k t, m_joints c !! i = Some k -> 0 <= t <= m_dt c ->
     obeys tiny (joint_limits lim i) k (m_dt c) (t / m_dt c) /\
     derivable_pt_lim (fun t => position k (t / m_dt c)) t (velocity k (m_dt c) (t / m_dt c)) /\
     derivable_pt_lim (fun t => velocity k (m_dt c) (t / m_dt c)) t (acceleration k (m_dt c) (t / m_dt c))) /\
  ((forall i k u, m_joints c !! i = Some k -> 0 <= u <= 1 -> obeys 0 (joint_limits lim i) k (m_dt c) u) ->
     within c lim = true).
Proof.
  intros Hdt. split.
  - intros Hc i k t Hi Ht. destruct (within_joint c lim i k Hc Hi) as [_ Hk]. split_and!.
    + apply joint_within_sound; [done|done|]. split.
      * unfold Rdiv. apply Rmult_le_pos; [lra|]. left. by apply Rinv_0_lt_compat.
      * apply Rmult_le_reg_r with (m_dt c); [done|]. replace (t / m_dt c * m_dt c) with t by (field; lra). lra.
    + apply velocity_derivative. lra.
    + apply acceleration_derivative. lra.
  - by apply within_complete.
Qed.

Lemma segments_within_nth knots dt lim i :
  segments_within knots dt lim = true -> (S i < length knots)%nat ->
  within (make_cubic (nth i knots state0) (nth (S i) knots state0) dt) lim = true.
Proof.
  revert i. induction knots as [|p knots IH]; intros i; [intros _ Hi; cbn in Hi; lia|].
  destruct knots as [|q rest]; [intros _ Hi; cbn in Hi; lia|]. intros [Hw Hs]%andb_true_iff Hi.
  destruct i as [|i]; [done|]. apply (IH i Hs). cbn in *. lia.
Qed.

Lemma make_cubic_joint p q (dt : R) i :
  (i < 6)%nat -> m_joints (make_cubic p q dt) !! i = Some (joint_cubic (at_joint (js_q p) i)
    (at_joint (js_dq p) i) (at_joint (js_q q) i) (at_joint (js_dq q) i) dt).
Proof. intros Hi. unfold make_cubic. cbn [m_joints]. rewrite list_lookup_fmap, lookup_seq_lt by done. done. Qed.

(** The index that [sampleMPC] computes. *)
Lemma sample_index (n : nat) (t dt : R) :
  (2 <= n)%nat -> 0 < dt -> 0 <= t ->
  (0 <= Z.min (trunc (div t dt)) (Z.of_nat n - 2) <= Z.of_nat n - 2)%Z.
Proof.
  intros Hn Hdt Ht. cbn [trunc div real_arith]. assert (0 <= Int_part (t / dt))%Z; [|lia].
  assert (-1 < Int_part (t / dt))%Z; [|lia]. apply lt_IZR.
  assert (0 <= t / dt) by (unfold Rdiv; apply Rmult_le_pos; [lra|left; by apply Rinv_0_lt_compat]).
  destruct (base_Int_part (t / dt)). lra.
Qed.

Lemma clamp_low (x low high : R) : low <= high -> low <= clamp x low high.
Proof.
  intros Hlh. unfold clamp. destruct (ltb x low) eqn:H0; [lra|]. apply R_ltb_false in H0.
  by destruct (ltb high x).
Qed.

(** C35: a plan whose segments pass the check is safe to sample at any time, also
    before its start and past its end ([sampleMPC]): every joint respects its
    limits in position and velocity.  Values are reals, and the limits are the
    check's own, which are a little wider than the configured ones ([respects]):
    a position by its tolerance of 1e-7 and by 2e-15 for what it neglects, a
    velocity by 1e-7 and by 1e-15 / dt. *)
Theorem sampleMPC_respects knots dt lim time i :
  (2 <= length knots)%nat -> 0 < dt -> segments_within knots dt lim = true -> (i < 6)%nat ->
  let s := sampleMPC knots dt time in
  respects (joint_limits lim i) dt (at_joint (js_q s) i) (at_joint (js_dq s) i).
Proof.
  intros Hn Hdt Hs Hi. cbv zeta. unfold sampleMPC. cbv zeta.
  set (t := clamp time _ _). assert (0 <= t) as Ht.
  { apply clamp_low. cbn. apply Rmult_le_pos; [lra|]. apply IZR_le. lia. }
  pose proof (sample_index (length knots) t dt Hn Hdt Ht) as Hj. set (j := Z.min _ _) in *.
  replace (Z.to_nat (j + 1)) with (S (Z.to_nat j)) by lia.
  set (c := make_cubic _ _ _). change dt with (m_dt c) at 2.
  eapply sample_respects; [|by apply make_cubic_joint]. apply segments_within_nth; [done|lia].
Qed.
End results.

(** ** A motion from 0 to 1 in one second *)

Section witnesses.
Local Open Scope R_scope.

Definition constant {F} `{Arith F} (z : Z) : list F := repeat (of_Z z) 6.
Definition still {F} `{Arith F} (z : Z) : MPCJointState := {| js_q := constant z; js_dq := constant 0 |}.
Definition limits1 {F} `{Arith F} (v : Z) : MPCJointLimits := {|
  m_lower := constant 0; m_upper := constant 1; m_velocity := constant v; m_acceleration := constant 6 |}.

Lemma at_constant (z : Z) i : (i < 6)%nat -> at_joint (constant z) i = IZR z.
Proof. intros Hi. do 6 (destruct i as [|i]; [done|]). exfalso. clear -Hi. do 6 apply Nat.succ_lt_mono in Hi. inversion Hi. Qed.

Lemma motion_within : segments_within [still 0; still 1] (of_Z 1) (limits1 2) = true.
Proof.
  cbn [segments_within]. rewrite andb_true_r. apply within_complete; [cbn; lra|].
  intros i k u Hi Hu. assert (i < 6)%nat as H6 by (by apply lookup_lt_Some in Hi).
  rewrite make_cubic_joint in Hi by done. injection Hi as <-. cbn [m_dt make_cubic].
  unfold obeys. cbn [l_lower l_upper l_velocity l_acceleration joint_limits limits1 m_lower m_upper m_velocity
    m_acceleration still js_q js_dq]. rewrite !at_constant by done.
  rewrite velocity_fun, position_fun. unfold acceleration, cubic_fun, joint_cubic.
  cbn [m_a m_b m_c m_d add sub mul of_Z real_arith].
  assert (0 < @margin R _) by (apply Rdiv_lt_0_compat; cbn; [lra|by apply IZR_lt]).
  assert (0 <= u * (1 - u)) by (apply Rmult_le_pos; lra).
  split; [|split; apply Rabs_le].
  - assert (0 <= u * (u * (1 - u))) by (apply Rmult_le_pos; lra).
    assert (0 <= u * u) by (apply Rmult_le_pos; lra).
    assert (0 <= (1 - u) * (1 - u)) by apply Rle_0_sqr.
    assert (0 <= (1 - u) * (u * (1 - u))) by (apply Rmult_le_pos; lra). split; lra.
  - unfold Rdiv. rewrite Rinv_1. assert (0 <= (u - 1/2) * (u - 1/2)) by apply Rle_0_sqr. lra.
  - unfold Rdiv. rewrite Rmult_1_r, Rinv_1. lra.
Qed.
End witnesses.

(** The same with doubles, where the check rejects it for a limit of 1.4 rad/s,
    which it exceeds only half way: the ends are at rest. *)
Example motion_checked :
  segments_within [still 0; still 1] (of_Z 1) (limits1 2) = true /\
  segments_within (F:=double) [still 0; still 1] (of_Z 1) (limits1 2) = true /\
  segments_within (F:=double) [still 0; still 1] (of_Z 1) (limits1 1) = false /\
  velocity_ok (joint_limits (limits1 1) 0) (joint_cubic (of_Z 0 : double) (of_Z 0) (of_Z 1) (of_Z 0) (of_Z 1)) (of_Z 1) (of_Z 0) = true /\
  velocity_ok (joint_limits (limits1 1) 0) (joint_cubic (of_Z 0 : double) (of_Z 0) (of_Z 1) (of_Z 0) (of_Z 1)) (of_Z 1) (of_Z 1) = true.
Proof. split; [apply motion_within|]. vm_compute. done. Qed.

Lemma within_decides_limits_witness :
  (0 < 1)%R /\ within (make_cubic (still 0) (still 1) 1%R) (limits1 2) = true /\
  obeys tiny (joint_limits (limits1 2) 3) (joint_cubic 0 0 1 0 1)%R 1 (1 / 2 / 1).
Proof.
  assert (within (make_cubic (still 0) (still 1) 1%R) (limits1 2) = true) as Hw.
  { pose proof motion_within as Hm. cbn [segments_within] in Hm. by rewrite andb_true_r in Hm. }
  split; [exact Rlt_0_1|]. split; [done|].
  destruct (within_decides_limits (make_cubic (still 0) (still 1) 1%R) (limits1 2) Rlt_0_1) as [Hs _].
  apply (Hs Hw 3%nat (joint_cubic 0 0 1 0 1)%R (1 / 2)%R); [done|]. cbn [m_dt make_cubic]. split; lra.
Defined.

Lemma sampleMPC_respects_witness :
  segments_within [still 0; still 1] 1%R (limits1 2) = true /\
  respects (joint_limits (limits1 2) 5) 1
    (at_joint (js_q (sampleMPC [still 0; still 1] 1%R 7%R)) 5)
    (at_joint (js_dq (sampleMPC [still 0; still 1] 1%R 7%R)) 5).
Proof.
  split; [exact motion_within|].
  apply (sampleMPC_respects [still 0; still 1] 1%R (limits1 2) 7%R 5%nat); [repeat constructor|lra|exact motion_within|lia].
Defined.
