(* ===== verification/MPCSession.v ===== *)
(** * The position controller: its session

    [include/florid/mpc/MPCControl.hpp], [include/florid/detail/MPCSession.hpp],
    [src/MPCSession.cpp].  A session has two workers.  The planner reads the
    feedback and the latest target, calls the solver and publishes its plans; the
    output worker follows the latest plan, checking at every period all that it
    relies on, and sends joint commands.  Both are programs ([Prog.v]) over their
    locals that talk to the clock, the mailboxes, the callbacks and the atomics;
    so are the functions that the callers of the session use.  The solver and
    the mailboxes of the Wirelink library are behind calls, times are the
    nanoseconds of [steady_clock], and the arithmetic is that of doubles. *)

From S2P Require Import Prelude DeviceTypes Commands Prog Arith MPCTrajectory.

(** ** Data *)

Record MPCControlConfig := {
  current_limit_norm : Z; velocity_excitation : Z; max_joint_velocity : Z;
  max_joint_acceleration : Z; max_tracking_error : Z;  (* floats *)
  state_timeout : Z; target_timeout : Z; plan_timeout : Z; output_lateness_limit : Z  (* ns *)
}.
(** The defaults: 0.3, 1.2, 1 rad/s, 20 rad/s^2, 0.15 rad, and the timeouts. *)
Definition config0 : MPCControlConfig := {|
  current_limit_norm := 1050253722; velocity_excitation := 1067030938; max_joint_velocity := 1065353216;
  max_joint_acceleration := 1101004800; max_tracking_error := 1041865114;
  state_timeout := 40000000; target_timeout := 200000000; plan_timeout := 60000000;
  output_lateness_limit := 10000000 |}.
Definition planning_period : Z := 20000000.
Definition output_period : Z := 2000000.
Definition ms (n : Z) : Z := n * 1000000.

Inductive MPCControlState := kWaitingForTarget | kPlanning | kRunningState | kStoppedState | kFault.
Inductive MPCStopReason :=
| kStopped | kMotionFinished | kStaleState | kStaleTarget | kStalePlan | kOutputDeadline
| kInvalidState | kInvalidTrajectory | kTrackingError | kTransport | kInternalError.
#[global] Instance MPCStopReason_eq_dec : EqDecision MPCStopReason.
Proof. solve_decision. Defined.

(** [m_stop_reason]: [kNone] is [None]. *)
Definition reason := option MPCStopReason.

Record MPCControlStatus := {
  st_state : MPCControlState;
  st_stop_reason : reason;
  st_solver_status : Z;
  st_solves : Z; st_solver_failures : Z; st_outputs : Z; st_plan_switches : Z;
  st_missed_planning_periods : Z; st_missed_output_periods : Z;
  st_last_solve_ms : double; st_max_solve_ms : double; st_max_output_lateness_ms : double;
  st_state_age_ms : double; st_plan_age_ms : double;
  st_reference_q : list Z; st_reference_dq : list Z
}.
Definition status0 : MPCControlStatus := {|
  st_state := kWaitingForTarget; st_stop_reason := None; st_solver_status := -1;
  st_solves := 0; st_solver_failures := 0; st_outputs := 0; st_plan_switches := 0;
  st_missed_planning_periods := 0; st_missed_output_periods := 0;
  st_last_solve_ms := of_Z 0; st_max_solve_ms := of_Z 0; st_max_output_lateness_ms := of_Z 0;
  st_state_age_ms := of_Z 0; st_plan_age_ms := of_Z 0;
  st_reference_q := repeat 0 6; st_reference_dq := repeat 0 6 |}.

Record MPCMeasurement := { m_state : ArmState; m_received : Z; m_connected : bool; m_meas_generation : Z }.

Record MPCPlan := { m_knots : list (MPCJointState (F:=double)); m_origin : Z; m_generation : Z }.
Definition plan0 : MPCPlan := {| m_knots := repeat state0 6; m_origin := 0; m_generation := 0 |}.
Definition kDt : double := decimal 20 3.

(** What a mailbox answers to a reader: a status, and the value if it was copied. *)
Inductive wl_status := WL_OK | WL_ERR_NO_DATA | WL_ERROR.
#[global] Instance wl_status_eq_dec : EqDecision wl_status.
Proof. solve_decision. Defined.
Definition mailbox (T : Type) : Type := wl_status * option T.
Definition unreadable (st : wl_status) : bool := bool_decide (st <> WL_OK /\ st <> WL_ERR_NO_DATA).

Definition seconds (duration : Z) : double := div (of_Z duration) (of_Z (10 ^ 9)).
Definition millis (duration : Z) : double := mul (seconds duration) (of_Z 1000).

(** ** Calls *)

Inductive mpc_call : Type -> Type :=
(* the clock *)
| Now : mpc_call Z
| TimerValid : mpc_call bool
(* the callbacks; [None] and [false]: they throw *)
| PlanRead : mpc_call (option MPCMeasurement)
| OutputRead : mpc_call (option MPCMeasurement)
| Send (c : JointPVT) : mpc_call bool
| Solve (s : ArmState) (target : CartesianPose) (p : MPCPlan) : mpc_call (option Z * MPCPlan)
(* the mailboxes *)
| TargetsRead : mpc_call (mailbox CartesianPose)
| TargetsPublish (t : CartesianPose) : mpc_call bool
| PlansRead : mpc_call (mailbox MPCPlan)
| PlansPublish (p : MPCPlan) : mpc_call bool
| PlannerStatusPublish (s : MPCControlStatus) : mpc_call bool
| OutputStatusPublish (s : MPCControlStatus) : mpc_call bool
| PlannerStatusRead : mpc_call (mailbox MPCControlStatus)
| OutputStatusRead : mpc_call (mailbox MPCControlStatus)
(* the atomics *)
| LoadReason : mpc_call reason
| ExchangeReason (r : MPCStopReason) : mpc_call bool  (* compare_exchange_strong from kNone *)
| LoadStarted : mpc_call bool
| StoreStarted : mpc_call unit
| LoadTargetTime : mpc_call Z
| StoreTargetTime (t : Z) : mpc_call unit
| LoadFirstTargetTime : mpc_call Z
| StoreFirstTargetTime (t : Z) : mpc_call unit
(* the semaphores, the write and the join mutex, and the threads *)
| PlanRelease : mpc_call unit
| OutputRelease : mpc_call unit
| PlanAcquire : mpc_call unit
| OutputAcquire : mpc_call unit
| PlanAcquireUntil (t : Z) : mpc_call unit
| OutputAcquireUntil (t : Z) : mpc_call unit
| WriteLock : mpc_call unit
| WriteUnlock : mpc_call unit
| JoinLock : mpc_call unit
| JoinUnlock : mpc_call unit
| OutputJoinable : mpc_call bool
| PlannerJoinable : mpc_call bool
| JoinOutput : mpc_call unit
| JoinPlanner : mpc_call unit.

Abbreviation mpc := (prog mpc_call).

(** ** Configuration *)

Definition gtb (x y : double) : bool := ltb y x.
Definition geb (x y : double) : bool := leb y x.
Definition float (bits : Z) : double := double_of_float bits.

(** [validateConfig]: [false] when it throws. *)
Definition validateConfig (c : MPCControlConfig) : bool :=
  negb (negb (finite (float (current_limit_norm c))) || leb (float (current_limit_norm c)) (of_Z 0) ||
        gtb (float (current_limit_norm c)) (of_Z 1) ||
        negb (finite (float (velocity_excitation c))) || ltb (float (velocity_excitation c)) (of_Z 1) ||
        negb (finite (float (max_joint_velocity c))) || leb (float (max_joint_velocity c)) (of_Z 0) ||
        negb (finite (float (max_joint_acceleration c))) || leb (float (max_joint_acceleration c)) (of_Z 0) ||
        negb (finite (float (max_tracking_error c))) || leb (float (max_tracking_error c)) (of_Z 0) ||
        (state_timeout c <=? output_period) || (target_timeout c <=? planning_period) ||
        (plan_timeout c <=? planning_period) || (ms 80 <? plan_timeout c) ||
        (output_lateness_limit c <? output_period) || (plan_timeout c <=? output_lateness_limit c)).

(** The traits of the model, and [m_limits]. *)
Definition kQLower : list double :=
  [float_decimal (-314) 2; of_Z 0; of_Z 0; float_decimal (-13) 1; float_decimal (-157) 2; float_decimal (-157) 2].
Definition kQUpper : list double :=
  [float_decimal 314 2; float_decimal 314 2; float_decimal 314 2; float_decimal 13 1; float_decimal 157 2;
   float_decimal 157 2].
Definition kDqLimit : list double :=
  [float_decimal 1248 2; float_decimal 3744 3; float_decimal 3744 3; float_decimal 1248 2; float_decimal 1248 2;
   float_decimal 1248 2].
Definition session_limits (c : MPCControlConfig) : MPCJointLimits := {|
  m_lower := kQLower;
  m_upper := kQUpper;
  m_velocity := map (fun limit => min (float (max_joint_velocity c)) limit) kDqLimit;
  m_acceleration := repeat (float (max_joint_acceleration c)) 6 |}.

(** ** Stopping *)

Definition stopped : mpc bool := r ← call LoadReason; mret (bool_decide (r <> None)).

Definition requestStop (r : MPCStopReason) : mpc unit :=
  won ← call (ExchangeReason r);
  if won : bool then _ ← call PlanRelease; call OutputRelease else mret tt.

Definition fault (r : MPCStopReason) : mpc unit := requestStop r.

(** [stop]; the argument [kNone] stands for [kStopped]. *)
Definition stop (r : reason) : mpc unit :=
  _ ← requestStop (default kStopped r);
  _ ← call JoinLock;
  output ← call OutputJoinable;
  _ ← (if output : bool then call JoinOutput else mret tt);
  planner ← call PlannerJoinable;
  _ ← (if planner : bool then call JoinPlanner else mret tt);
  call JoinUnlock.

(** ** Targets *)

(** The exceptions of [write]: [CommandException] and [ControlException]. *)
Inductive write_error := InvalidTarget | SessionStopped (r : reason) | CannotPublish.

Definition homogeneous (t : CartesianPose) : bool :=
  let T i := float (nth i (pose_T t) 0) in
  let small x := negb (gtb (abs x) (float_decimal 1 5)) in
  small (T 3%nat) && small (T 7%nat) && small (T 11%nat) && small (float_sub (T 15%nat) (of_Z 1)).

Definition first_target (now : Z) : mpc unit :=
  _ ← call (StoreFirstTargetTime now);
  _ ← call StoreStarted;
  _ ← call PlanRelease;
  call OutputRelease.

(** [write]'s part under the mutex. *)
Definition write_locked (t : CartesianPose) : mpc (option write_error) :=
  is_stopped ← stopped;
  if is_stopped : bool then r ← call LoadReason; mret (Some (SessionStopped r))
  else
    published ← call (TargetsPublish t);
    if negb published then _ ← fault kInternalError; mret (Some CannotPublish)
    else
      now ← call Now;
      _ ← call (StoreTargetTime now);
      started ← call LoadStarted;
      _ ← (if negb started then first_target now else mret tt);
      mret None.

Definition write (t : CartesianPose) (motion_finished : bool) : mpc (option write_error) :=
  if motion_finished then _ ← stop (Some kMotionFinished); mret None
  else if negb (forallb (fun v => finite (float v)) (pose_T t)) then mret (Some InvalidTarget)
  else if negb (homogeneous t) then mret (Some InvalidTarget)
  else
    _ ← call WriteLock;
    result ← write_locked t;
    _ ← call WriteUnlock;
    mret result.

(** ** Status *)

(** [status], from what the two mailboxes last held and the atomics. *)
Definition status_of (planner output : MPCControlStatus) (stop_reason : reason) (started : bool) : MPCControlStatus := {|
  st_state :=
    match stop_reason with
    | Some kStopped | Some kMotionFinished => kStoppedState
    | Some _ => kFault
    | None => if st_outputs output =? 0 then (if started then kPlanning else kWaitingForTarget) else kRunningState
    end;
  st_stop_reason := stop_reason;
  st_solver_status := st_solver_status planner; st_solves := st_solves planner;
  st_solver_failures := st_solver_failures planner; st_outputs := st_outputs output;
  st_plan_switches := st_plan_switches output;
  st_missed_planning_periods := st_missed_planning_periods planner;
  st_missed_output_periods := st_missed_output_periods output;
  st_last_solve_ms := st_last_solve_ms planner; st_max_solve_ms := st_max_solve_ms planner;
  st_max_output_lateness_ms := st_max_output_lateness_ms output;
  st_state_age_ms := st_state_age_ms output; st_plan_age_ms := st_plan_age_ms output;
  st_reference_q := st_reference_q output; st_reference_dq := st_reference_dq output |}.

(** [status]: the caches, and the status unless it throws. *)
Definition status (cached_planner cached_output : MPCControlStatus) :
    mpc (MPCControlStatus * MPCControlStatus * option MPCControlStatus) :=
  planner_read ← call PlannerStatusRead;
  output_read ← call OutputStatusRead;
  let planner := default cached_planner (snd planner_read) in
  let output := default cached_output (snd output_read) in
  if unreadable (fst planner_read) || unreadable (fst output_read) then mret (planner, output, None)
  else
    stop_reason ← call LoadReason;
    started ← (if negb (bool_decide (stop_reason <> None)) && (st_outputs output =? 0)
               then call LoadStarted else mret false);
    mret (planner, output, Some (status_of planner output stop_reason started)).

(** ** The workers

    A pass over the locals of a worker; it may leave the worker's body, by
    [return] or by an exception.  [Unfinished] is not an outcome of the code: the
    fuel of a loop is used up. *)

Inductive leaving := Returned | Threw | Unfinished.
Definition worker (S A : Type) : Type := S -> mpc (S * (leaving + A)).

#[export] Instance worker_ret {S} : MRet (worker S) := fun A a s => mret (s, inr a).
#[export] Instance worker_bind {S} : MBind (worker S) := fun A B f p s =>
  out ← p s; match snd out with inl e => mret (fst out, inl e) | inr a => f a (fst out) end.

Definition leave {S A} (why : leaving) : worker S A := fun s => mret (s, inl why).
Definition act {S A} (p : mpc A) : worker S A := fun s => a ← p; mret (s, inr a).
Definition gets {S A} (f : S -> A) : worker S A := fun s => mret (s, inr (f s)).
Definition modify {S} (f : S -> S) : worker S unit := fun s => mret (f s, inr tt).

(** [fault(...); return;] *)
Definition fail {S A} (r : MPCStopReason) : worker S A := _ ← act (fault r); leave Returned.

(** [waitUntil]. *)
Fixpoint waitUntil {S} (fuel : nat) (time : Z) (acquire : mpc_call unit) : worker S bool :=
  match fuel with
  | O => leave Unfinished
  | S fuel' =>
      is_stopped ← act stopped;
      if is_stopped : bool then is_stopped ← act stopped; mret (negb is_stopped)
      else
        now ← act (call Now);
        if now <? time then _ ← act (call acquire); waitUntil fuel' time acquire
        else is_stopped ← act stopped; mret (negb is_stopped)
  end.

(** [validMeasurement]: the fault that it requests, if any. *)
Definition joint_invalid (l : MPCJointLimits) (m : MPCMeasurement) (i : nat) : bool :=
  let q := float (nth i (as_q (m_state m)) 0) in
  let dq := float (nth i (as_dq (m_state m)) 0) in
  negb (finite q) || negb (finite dq) || ltb q (at_joint (m_lower l) i) || gtb q (at_joint (m_upper l) i) ||
  gtb (abs dq) (at_joint (m_velocity l) i).
Definition measurement_fault (c : MPCControlConfig) (m : MPCMeasurement) (now : Z) : reason :=
  if negb (m_connected m) then Some kTransport
  else if (m_received m =? 0) || (now <? m_received m) || (state_timeout c <? now - m_received m) then Some kStaleState
  else if negb (as_errors (m_state m) =? 0) then Some kInvalidState
  else if existsb (joint_invalid (session_limits c) m) (seq 0 6) then Some kInvalidState
  else None.

(** The next period after [done], and how many were missed. *)
Definition next_period (period next done : Z) : Z * Z :=
  let next := next + period in
  if next <=? done then
    let missed := Z.quot (done - next) period + 1 in
    (missed, next + missed * period)
  else (0, next).

(** ** The planner *)

Record planner := {
  pl_status : MPCControlStatus; pl_next : Z; pl_target : CartesianPose; pl_generation : Z
}.
Definition pose0 : CartesianPose := {| pose_T := repeat 0 16; pose_kp := repeat 0 6; pose_kd := repeat 0 6 |}.

Definition with_target (t : option CartesianPose) (s : planner) : planner := {|
  pl_status := pl_status s; pl_next := pl_next s; pl_target := default (pl_target s) t;
  pl_generation := pl_generation s |}.

Definition with_solve (result begin_ done_ : Z) (s : planner) : planner :=
  let st := pl_status s in
  let last := millis (done_ - begin_) in {|
  pl_status := {|
    st_state := st_state st; st_stop_reason := st_stop_reason st; st_solver_status := result;
    st_solves := u64 (st_solves st + 1);
    st_solver_failures := if result =? 0 then st_solver_failures st else u64 (st_solver_failures st + 1);
    st_outputs := st_outputs st; st_plan_switches := st_plan_switches st;
    st_missed_planning_periods := st_missed_planning_periods st;
    st_missed_output_periods := st_missed_output_periods st;
    st_last_solve_ms := last; st_max_solve_ms := max (st_max_solve_ms st) last;
    st_max_output_lateness_ms := st_max_output_lateness_ms st; st_state_age_ms := st_state_age_ms st;
    st_plan_age_ms := st_plan_age_ms st; st_reference_q := st_reference_q st;
    st_reference_dq := st_reference_dq st |};
  pl_next := pl_next s; pl_target := pl_target s; pl_generation := pl_generation s |}.

Definition with_generation (g : Z) (s : planner) : planner := {|
  pl_status := pl_status s; pl_next := pl_next s; pl_target := pl_target s; pl_generation := g |}.

Definition with_missed_planning (missed next : Z) (s : planner) : planner :=
  let st := pl_status s in {|
  pl_status := {|
    st_state := st_state st; st_stop_reason := st_stop_reason st; st_solver_status := st_solver_status st;
    st_solves := st_solves st; st_solver_failures := st_solver_failures st;
    st_outputs := st_outputs st; st_plan_switches := st_plan_switches st;
    st_missed_planning_periods := u64 (st_missed_planning_periods st + missed);
    st_missed_output_periods := st_missed_output_periods st;
    st_last_solve_ms := st_last_solve_ms st; st_max_solve_ms := st_max_solve_ms st;
    st_max_output_lateness_ms := st_max_output_lateness_ms st; st_state_age_ms := st_state_age_ms st;
    st_plan_age_ms := st_plan_age_ms st; st_reference_q := st_reference_q st;
    st_reference_dq := st_reference_dq st |};
  pl_next := next; pl_target := pl_target s; pl_generation := pl_generation s |}.

(** The plan of a solve gets the next generation and is published. *)
Definition publish_plan (p : MPCPlan) : worker planner unit :=
  g ← gets pl_generation;
  let g := u64 (g + 1) in
  _ ← modify (with_generation g);
  published ← act (call (PlansPublish {| m_knots := m_knots p; m_origin := m_origin p; m_generation := g |}));
  if published : bool then mret tt else fail kInternalError.

(** The rest of a pass after the solve. *)
Definition after_solve (wait_fuel : nat) (done_ : Z) (result : Z) (p : MPCPlan) : worker planner unit :=
  is_stopped ← act stopped;
  if is_stopped : bool then leave Returned
  else
    _ ← (if result =? 0 then publish_plan p else mret tt);
    next ← gets pl_next;
    _ ← modify (with_missed_planning (fst (next_period planning_period next done_))
                                     (snd (next_period planning_period next done_)));
    st ← gets pl_status;
    published ← act (call (PlannerStatusPublish st));
    if negb published then fail kInternalError
    else
      next ← gets pl_next;
      go ← waitUntil wait_fuel next (PlanAcquireUntil next);
      if go : bool then mret tt else leave Returned.

Definition plan_pass (wait_fuel : nat) (c : MPCControlConfig) : worker planner unit :=
  m ← act (call PlanRead);
  match m with
  | None => leave Threw
  | Some m =>
      now ← act (call Now);
      match measurement_fault c m now with
      | Some r => fail r
      | None =>
          t ← act (call TargetsRead);
          _ ← modify (with_target (snd t));
          if unreadable (fst t) then fail kInternalError
          else
            begin_ ← act (call Now);
            target ← gets pl_target;
            solved ← act (call (Solve (m_state m) target
              {| m_knots := m_knots plan0; m_origin := m_received m; m_generation := 0 |}));
            done_ ← act (call Now);
            let result := default (-2) (fst solved) in
            _ ← modify (with_solve result begin_ done_);
            after_solve wait_fuel done_ result (snd solved)
      end
  end.

Fixpoint plan_passes (fuel wait_fuel : nat) (c : MPCControlConfig) : worker planner unit :=
  match fuel with
  | O => leave Unfinished
  | S fuel' =>
      is_stopped ← act stopped;
      if is_stopped : bool then mret tt
      else _ ← plan_pass wait_fuel c; plan_passes fuel' wait_fuel c
  end.

(** The end of a worker: [catch], and the final publication of its status. *)
Definition finish {S} (publish : S -> mpc_call bool) (out : S * (leaving + unit)) : mpc bool :=
  match snd out with
  | inl Unfinished => mret false
  | e =>
      _ ← (match e with inl Threw => fault kTransport | _ => mret tt end);
      published ← call (publish (fst out));
      _ ← (if published : bool then mret tt else fault kInternalError);
      mret true
  end.

(** [true] when the worker has ended. *)
Definition planLoop (fuel wait_fuel : nat) (c : MPCControlConfig) : mpc bool :=
  _ ← call PlanAcquire;
  now ← call Now;
  out ← plan_passes fuel wait_fuel c
    {| pl_status := status0; pl_next := now; pl_target := pose0; pl_generation := 0 |};
  finish (fun s => PlannerStatusPublish (pl_status s)) out.

(** ** The output worker *)

Record executor := {
  ex_status : MPCControlStatus; ex_next : Z;
  ex_active : MPCPlan; ex_new : MPCPlan;
  ex_bridge : option (MPCCubic (F:=double)); ex_bridge_start : Z;
  ex_previous : option (MPCJointState (F:=double))  (* s_previous, s_has_previous *)
}.

Definition ex_with_new (p : option MPCPlan) (s : executor) : executor := {|
  ex_status := ex_status s; ex_next := ex_next s; ex_active := ex_active s; ex_new := default (ex_new s) p;
  ex_bridge := ex_bridge s; ex_bridge_start := ex_bridge_start s; ex_previous := ex_previous s |}.
Definition ex_with_status (f : MPCControlStatus -> MPCControlStatus) (s : executor) : executor := {|
  ex_status := f (ex_status s); ex_next := ex_next s; ex_active := ex_active s; ex_new := ex_new s;
  ex_bridge := ex_bridge s; ex_bridge_start := ex_bridge_start s; ex_previous := ex_previous s |}.

Definition st_late (lateness : double) (st : MPCControlStatus) : MPCControlStatus := {|
  st_state := st_state st; st_stop_reason := st_stop_reason st; st_solver_status := st_solver_status st;
  st_solves := st_solves st; st_solver_failures := st_solver_failures st;
  st_outputs := st_outputs st; st_plan_switches := st_plan_switches st;
  st_missed_planning_periods := st_missed_planning_periods st;
  st_missed_output_periods := st_missed_output_periods st;
  st_last_solve_ms := st_last_solve_ms st; st_max_solve_ms := st_max_solve_ms st;
  st_max_output_lateness_ms := max (st_max_output_lateness_ms st) lateness;
  st_state_age_ms := st_state_age_ms st; st_plan_age_ms := st_plan_age_ms st;
  st_reference_q := st_reference_q st; st_reference_dq := st_reference_dq st |}.
Definition st_switched (st : MPCControlStatus) : MPCControlStatus := {|
  st_state := st_state st; st_stop_reason := st_stop_reason st; st_solver_status := st_solver_status st;
  st_solves := st_solves st; st_solver_failures := st_solver_failures st;
  st_outputs := st_outputs st; st_plan_switches := u64 (st_plan_switches st + 1);
  st_missed_planning_periods := st_missed_planning_periods st;
  st_missed_output_periods := st_missed_output_periods st;
  st_last_solve_ms := st_last_solve_ms st; st_max_solve_ms := st_max_solve_ms st;
  st_max_output_lateness_ms := st_max_output_lateness_ms st;
  st_state_age_ms := st_state_age_ms st; st_plan_age_ms := st_plan_age_ms st;
  st_reference_q := st_reference_q st; st_reference_dq := st_reference_dq st |}.
Definition st_sent (cmd : JointPVT) (ref : MPCJointState (F:=double)) (state_age plan_age : Z)
    (st : MPCControlStatus) : MPCControlStatus := {|
  st_state := kRunningState; st_stop_reason := st_stop_reason st; st_solver_status := st_solver_status st;
  st_solves := st_solves st; st_solver_failures := st_solver_failures st;
  st_outputs := u64 (st_outputs st + 1); st_plan_switches := st_plan_switches st;
  st_missed_planning_periods := st_missed_planning_periods st;
  st_missed_output_periods := st_missed_output_periods st;
  st_last_solve_ms := st_last_solve_ms st; st_max_solve_ms := st_max_solve_ms st;
  st_max_output_lateness_ms := st_max_output_lateness_ms st;
  st_state_age_ms := millis state_age; st_plan_age_ms := millis plan_age;
  st_reference_q := pvt_q cmd; st_reference_dq := map float_of_double (js_dq ref) |}.
Definition st_missed_output (missed : Z) (st : MPCControlStatus) : MPCControlStatus := {|
  st_state := st_state st; st_stop_reason := st_stop_reason st; st_solver_status := st_solver_status st;
  st_solves := st_solves st; st_solver_failures := st_solver_failures st;
  st_outputs := st_outputs st; st_plan_switches := st_plan_switches st;
  st_missed_planning_periods := st_missed_planning_periods st;
  st_missed_output_periods := u64 (st_missed_output_periods st + missed);
  st_last_solve_ms := st_last_solve_ms st; st_max_solve_ms := st_max_solve_ms st;
  st_max_output_lateness_ms := st_max_output_lateness_ms st;
  st_state_age_ms := st_state_age_ms st; st_plan_age_ms := st_plan_age_ms st;
  st_reference_q := st_reference_q st; st_reference_dq := st_reference_dq st |}.

(** [s_sample]. *)
Definition s_sample (s : executor) (t : Z) : MPCJointState (F:=double) :=
  let plan_sample := sampleMPC (m_knots (ex_active s)) kDt (seconds (t - m_origin (ex_active s))) in
  let blend_time := seconds (t - ex_bridge_start s) in
  match ex_bridge s with
  | Some b => if leb blend_time kDt then cubic_sample b blend_time else plan_sample
  | None => plan_sample
  end.

(** Where the transition to a new plan starts. *)
Definition measured (m : MPCMeasurement) : MPCJointState (F:=double) := {|
  js_q := map (fun i => float (nth i (as_q (m_state m)) 0)) (seq 0 6);
  js_dq := map (fun i => float (nth i (as_dq (m_state m)) 0)) (seq 0 6) |}.
Definition anchor (s : executor) (m : MPCMeasurement) (now : Z) : MPCJointState (F:=double) :=
  if m_generation (ex_active s) =? 0 then measured m else s_sample s now.

Definition transition (s : executor) (m : MPCMeasurement) (now : Z) : MPCCubic (F:=double) :=
  make_cubic (anchor s m now)
    (sampleMPC (m_knots (ex_new s)) kDt (add (seconds (now - m_origin (ex_new s))) kDt)) kDt.

Definition ex_switch (b : MPCCubic (F:=double)) (now : Z) (s : executor) : executor := {|
  ex_status := st_switched (ex_status s); ex_next := ex_next s; ex_active := ex_new s; ex_new := ex_new s;
  ex_bridge := Some b; ex_bridge_start := now; ex_previous := ex_previous s |}.

(** Taking over a new plan. *)
Definition take_plan (c : MPCControlConfig) (m : MPCMeasurement) (now checked : Z) : worker executor unit :=
  s ← gets id;
  if plan_timeout c <? checked - m_origin (ex_new s) then fail kStalePlan
  else if negb (segments_within (m_knots (ex_new s)) kDt (session_limits c)) then fail kInvalidTrajectory
  else if negb (within (transition s m now) (session_limits c)) then fail kInvalidTrajectory
  else modify (ex_switch (transition s m now) now).

Definition check_plan (c : MPCControlConfig) (m : MPCMeasurement) (now checked : Z) : worker executor unit :=
  s ← gets id;
  if negb (m_generation (ex_active s) =? 0) && (plan_timeout c <? checked - m_origin (ex_active s)) &&
     (m_generation (ex_new s) =? m_generation (ex_active s))
  then fail kStalePlan
  else if negb (m_generation (ex_new s) =? m_generation (ex_active s)) then take_plan c m now checked
  else mret tt.

(** The command that follows a reference, joint by joint. *)
Definition tracking_error (c : MPCControlConfig) (ref : MPCJointState (F:=double)) (m : MPCMeasurement) (i : nat) : bool :=
  gtb (abs (sub (at_joint (js_q ref) i) (float (nth i (as_q (m_state m)) 0)))) (float (max_tracking_error c)).
Definition speed_limit (c : MPCControlConfig) (ref : MPCJointState (F:=double)) (m : MPCMeasurement)
    (previous : option (MPCJointState (F:=double))) (i : nat) : double :=
  let q := at_joint (js_q ref) i in
  let speed := max (abs (at_joint (js_dq ref) i))
                   (div (abs (sub q (float (nth i (as_q (m_state m)) 0)))) (decimal 20 3)) in
  let speed := match previous with
               | Some p => max speed (div (abs (sub q (at_joint (js_q p) i))) (decimal 2 3))
               | None => speed
               end in
  min (at_joint (m_velocity (session_limits c)) i)
      (max (decimal 1 4) (mul speed (float (velocity_excitation c)))).
Definition command_for (c : MPCControlConfig) (ref : MPCJointState (F:=double)) (m : MPCMeasurement)
    (previous : option (MPCJointState (F:=double))) : JointPVT := {|
  pvt_q := map (fun i => float_of_double (at_joint (js_q ref) i)) (seq 0 6);
  pvt_dq_limit := map (fun i => float_of_double (speed_limit c ref m previous i)) (seq 0 6);
  pvt_current_limit_norm := repeat (current_limit_norm c) 6 |}.

Definition ex_sent (cmd : JointPVT) (ref : MPCJointState (F:=double)) (m : MPCMeasurement) (checked : Z)
    (s : executor) : executor := {|
  ex_status := st_sent cmd ref (checked - m_received m) (checked - m_origin (ex_active s)) (ex_status s);
  ex_next := ex_next s; ex_active := ex_active s; ex_new := ex_new s;
  ex_bridge := ex_bridge s; ex_bridge_start := ex_bridge_start s; ex_previous := Some ref |}.
Definition ex_missed (missed next : Z) (s : executor) : executor := {|
  ex_status := st_missed_output missed (ex_status s); ex_next := next;
  ex_active := ex_active s; ex_new := ex_new s;
  ex_bridge := ex_bridge s; ex_bridge_start := ex_bridge_start s; ex_previous := ex_previous s |}.

(** The lateness is noted, and checked. *)
Definition check_deadline (c : MPCControlConfig) (t : Z) : worker executor unit :=
  s ← gets id;
  _ ← modify (ex_with_status (st_late (millis (t - ex_next s))));
  if output_lateness_limit c <? t - ex_next s then fail kOutputDeadline else mret tt.

Definition send_reference (c : MPCControlConfig) (m : MPCMeasurement) (now checked : Z) : worker executor unit :=
  s ← gets id;
  let ref := s_sample s now in
  if existsb (tracking_error c ref m) (seq 0 6) then fail kTrackingError
  else
    let cmd := command_for c ref m (ex_previous s) in
    submit_time ← act (call Now);
    _ ← check_deadline c submit_time;
    is_stopped ← act stopped;
    if is_stopped : bool then leave Returned
    else
      sent ← act (call (Send cmd));
      if negb sent then leave Threw else modify (ex_sent cmd ref m checked).

Definition follow_plan (c : MPCControlConfig) (m : MPCMeasurement) (now checked : Z) : worker executor unit :=
  s ← gets id;
  if negb (m_generation (ex_active s) =? 0) then send_reference c m now checked
  else
    first ← act (call LoadFirstTargetTime);
    if plan_timeout c <? checked - first then fail kStalePlan else mret tt.

Definition end_period (wait_fuel : nat) (c : MPCControlConfig) : worker executor unit :=
  done_ ← act (call Now);
  _ ← check_deadline c done_;
  s ← gets id;
  _ ← modify (ex_missed (fst (next_period output_period (ex_next s) done_))
                        (snd (next_period output_period (ex_next s) done_)));
  st ← gets ex_status;
  published ← act (call (OutputStatusPublish st));
  if negb published then fail kInternalError
  else
    next ← gets ex_next;
    go ← waitUntil wait_fuel next (OutputAcquireUntil next);
    if go : bool then mret tt else leave Returned.

Definition output_pass (wait_fuel : nat) (c : MPCControlConfig) : worker executor unit :=
  now ← act (call Now);
  p ← act (call PlansRead);
  _ ← modify (ex_with_new (snd p));
  if unreadable (fst p) then fail kInternalError
  else
    target_time ← act (call LoadTargetTime);
    _ ← check_deadline c now;
    if target_timeout c <? now - target_time then fail kStaleTarget
    else
      m ← act (call OutputRead);
      match m with
      | None => leave Threw
      | Some m =>
          checked ← act (call Now);
          match measurement_fault c m checked with
          | Some r => fail r
          | None =>
              _ ← check_plan c m now checked;
              _ ← follow_plan c m now checked;
              end_period wait_fuel c
          end
      end.

Fixpoint output_passes (fuel wait_fuel : nat) (c : MPCControlConfig) : worker executor unit :=
  match fuel with
  | O => leave Unfinished
  | S fuel' =>
      is_stopped ← act stopped;
      if is_stopped : bool then mret tt
      else _ ← output_pass wait_fuel c; output_passes fuel' wait_fuel c
  end.

Definition executor0 (next : Z) : executor := {|
  ex_status := status0; ex_next := next; ex_active := plan0; ex_new := plan0;
  ex_bridge := None; ex_bridge_start := 0; ex_previous := None |}.

(** The body of [outputLoop]. *)
Definition output_body (fuel wait_fuel : nat) (c : MPCControlConfig) : worker executor unit :=
  valid ← act (call TimerValid);
  if negb valid then fail kOutputDeadline
  else
    _ ← act (call OutputAcquire);
    is_stopped ← act stopped;
    if is_stopped : bool then leave Returned
    else
      now ← act (call Now);
      _ ← modify (fun _ => executor0 now);
      output_passes fuel wait_fuel c.

(** [true] when the worker has ended. *)
Definition outputLoop (fuel wait_fuel : nat) (c : MPCControlConfig) : mpc bool :=
  out ← output_body fuel wait_fuel c (executor0 0);
  finish (fun s => OutputStatusPublish (ex_status s)) out.

Example config0_valid :
  map float_of_double [decimal 3 1; decimal 12 1; of_Z 1; of_Z 20; decimal 15 2] =
    [current_limit_norm config0; velocity_excitation config0; max_joint_velocity config0;
     max_joint_acceleration config0; max_tracking_error config0] /\
  validateConfig config0 = true.
Proof. by vm_compute. Qed.
