(* ===== verification/MPCSafety.v ===== *)
(** * The position controller: what its workers send and publish

    Every command of the output worker has passed all the checks of its period,
    every published plan is a successful solve of the period, and a worker ends
    only when the session is stopped. *)

From S2P Require Import Prelude DeviceTypes Commands Prog Arith MPCTrajectory MPCSession.

(** ** Workers and their calls *)

Create HintDb worker.

Section worker.
Context {S : Type} (ok : list (event mpc_call) -> event mpc_call -> Prop).
Implicit Types (h : list (event mpc_call)) (s : S).

Lemma safe_worker_call {R A} h (c : mpc_call R) (f : R -> worker S A) s post :
  (forall r, ok h (Event c r) /\ safe ok (h ++ [Event c r]) (f r s) post) ->
  safe ok h ((act (call c) ≫= f) s) post.
Proof. done. Qed.

Lemma safe_gets {R A} h (g : S -> R) (f : R -> worker S A) s post :
  safe ok h (f (g s) s) post -> safe ok h ((gets g ≫= f) s) post.
Proof. done. Qed.

Lemma safe_modify {A} h (g : S -> S) (f : unit -> worker S A) s post :
  safe ok h (f tt (g s)) post -> safe ok h ((modify g ≫= f) s) post.
Proof. done. Qed.

Lemma safe_worker {A B} h (p : worker S A) (f : A -> worker S B) s (mid : _ -> _ -> Prop) post :
  safe ok h (p s) mid ->
  (forall h' s' a, mid h' (s', inr a) -> safe ok h' (f a s') post) ->
  (forall h' s' e, mid h' (s', inl e) -> post h' (s', inl e)) ->
  safe ok h ((p ≫= f) s) post.
Proof.
  intros Hp Hf He. apply (safe_bind ok h (p s) _ mid); [done|]. intros h' [s' [e|a]] Hm; cbn.
  - by apply He.
  - by apply Hf.
Qed.
End worker.

(** [stopped] is a load of the reason. *)
Lemma safe_stopped ok {S A} h (f : bool -> worker S A) s post :
  (forall r, ok h (Event LoadReason r)) ->
  (forall r, safe ok (h ++ [Event LoadReason (Some r)]) (f true s) post) ->
  safe ok (h ++ [Event LoadReason None]) (f false s) post ->
  safe ok h ((act stopped ≫= f) s) post.
Proof. intros Hok Hs Hn r. split; [apply Hok|]. destruct r as [r|]; [apply Hs|apply Hn]. Qed.

(** ** Commands *)

(** *** What the history of the output worker says

    An observer of the calls knows the last reading of the clock, the due time of
    the current period (from the first reading on; each published status ends a
    period, and the next is the first one later than the clock), when the pass
    read the clock, the latest plan of the mailbox and the feedback that is not
    yet checked.  At the reading of the clock that checks the feedback, a plan of
    a new generation is adopted: with it, the transition that starts there,
    from the measured state at first and from the reference later, to the point
    that the plan reaches one knot after.  The last reference is that of the
    last command sent. *)

Record observer := {
  ob_clock : Z; ob_due : option Z; ob_now : Z; ob_latest : MPCPlan;
  ob_feedback : option MPCMeasurement;
  ob_followed : option (MPCPlan * MPCCubic (F:=double) * Z);
  ob_reference : option (MPCJointState (F:=double))
}.
Definition observer0 : observer := {|
  ob_clock := 0; ob_due := None; ob_now := 0; ob_latest := plan0; ob_feedback := None;
  ob_followed := None; ob_reference := None |}.

(** Where a plan followed with its transition has the arm at [t]. *)
Definition reference_at (followed : MPCPlan * MPCCubic (F:=double) * Z) (t : Z) : MPCJointState (F:=double) :=
  let '(plan, transition, since) := followed in
  if leb (seconds (t - since)) kDt then cubic_sample transition (seconds (t - since))
  else sampleMPC (m_knots plan) kDt (seconds (t - m_origin plan)).

Definition arm_at (m : MPCMeasurement) : MPCJointState (F:=double) := {|
  js_q := map (fun i => float (nth i (as_q (m_state m)) 0)) (seq 0 6);
  js_dq := map (fun i => float (nth i (as_dq (m_state m)) 0)) (seq 0 6) |}.

Definition followed_generation (ob : observer) : Z :=
  match ob_followed ob with Some (plan, _, _) => m_generation plan | None => 0 end.
Definition adopted (m : MPCMeasurement) (ob : observer) : option (MPCPlan * MPCCubic (F:=double) * Z) :=
  if m_generation (ob_latest ob) =? followed_generation ob then ob_followed ob
  else
    let from :=
      match ob_followed ob with
      | Some followed => if followed_generation ob =? 0 then arm_at m else reference_at followed (ob_now ob)
      | None => arm_at m
      end in
    Some (ob_latest ob,
      make_cubic from (sampleMPC (m_knots (ob_latest ob)) kDt
        (add (seconds (ob_now ob - m_origin (ob_latest ob))) kDt)) kDt,
      ob_now ob).

Definition observe_now (t : Z) (ob : observer) : observer := {|
  ob_clock := t; ob_due := Some (default t (ob_due ob)); ob_now := ob_now ob; ob_latest := ob_latest ob;
  ob_feedback := None;
  ob_followed := match ob_feedback ob with Some m => adopted m ob | None => ob_followed ob end;
  ob_reference := ob_reference ob |}.
Definition observe_plans (p : option MPCPlan) (ob : observer) : observer := {|
  ob_clock := ob_clock ob; ob_due := ob_due ob; ob_now := ob_clock ob; ob_latest := default (ob_latest ob) p;
  ob_feedback := ob_feedback ob; ob_followed := ob_followed ob; ob_reference := ob_reference ob |}.
Definition observe_feedback (m : option MPCMeasurement) (ob : observer) : observer := {|
  ob_clock := ob_clock ob; ob_due := ob_due ob; ob_now := ob_now ob; ob_latest := ob_latest ob;
  ob_feedback := m; ob_followed := ob_followed ob; ob_reference := ob_reference ob |}.
Definition observe_send (ob : observer) : observer := {|
  ob_clock := ob_clock ob; ob_due := ob_due ob; ob_now := ob_now ob; ob_latest := ob_latest ob;
  ob_feedback := ob_feedback ob; ob_followed := ob_followed ob;
  ob_reference :=
    match ob_followed ob with Some followed => Some (reference_at followed (ob_now ob)) | None => None end |}.
Definition due_after (due clock : Z) : Z :=
  due + output_period * Z.max 1 ((clock - due) / output_period + 1).
Definition observe_period (ob : observer) : observer := {|
  ob_clock := ob_clock ob;
  ob_due := match ob_due ob with Some due => Some (due_after due (ob_clock ob)) | None => None end;
  ob_now := ob_now ob; ob_latest := ob_latest ob; ob_feedback := ob_feedback ob;
  ob_followed := ob_followed ob; ob_reference := ob_reference ob |}.

Definition observe (ob : observer) (ev : event mpc_call) : observer :=
  match ev with
  | Event e r =>
      match e in mpc_call R return R -> observer with
      | Now => fun t => observe_now t ob
      | PlansRead => fun a => observe_plans (snd a) ob
      | OutputRead => fun m => observe_feedback m ob
      | Send _ => fun _ => observe_send ob
      | OutputStatusPublish _ => fun _ => observe_period ob
      | _ => fun _ => ob
      end r
  end.
Definition observed (h : list (event mpc_call)) : observer := fold_left observe h observer0.

(** *** What a command relies on *)

Definition sound_joint (c : MPCControlConfig) (m : MPCMeasurement) (i : nat) : Prop :=
  let q := float (nth i (as_q (m_state m)) 0) in
  let dq := float (nth i (as_dq (m_state m)) 0) in
  let l := session_limits c in
  finite q = true /\ finite dq = true /\ ltb q (at_joint (m_lower l) i) = false /\
  ltb (at_joint (m_upper l) i) q = false /\ ltb (at_joint (m_velocity l) i) (abs dq) = false.
Definition sound_feedback (c : MPCControlConfig) (m : MPCMeasurement) (t : Z) : Prop :=
  m_connected m = true /\ m_received m <> 0 /\ m_received m <= t /\ t - m_received m <= state_timeout c /\
  as_errors (m_state m) = 0 /\ forall i, (i < 6)%nat -> sound_joint c m i.

(** The speed that a joint may need: its reference's, what closes the distance
    to the reference in 20 ms, and what the reference moved in the last 2 ms. *)
Definition needed_speed (ref : MPCJointState (F:=double)) (m : MPCMeasurement)
    (last : option (MPCJointState (F:=double))) (i : nat) : double :=
  let reach := max (abs (at_joint (js_dq ref) i))
    (div (abs (sub (at_joint (js_q ref) i) (float (nth i (as_q (m_state m)) 0)))) (decimal 20 3)) in
  match last with
  | Some l => max reach (div (abs (sub (at_joint (js_q ref) i) (at_joint (js_q l) i))) (decimal 2 3))
  | None => reach
  end.
Definition follows (c : MPCControlConfig) (ref : MPCJointState (F:=double)) (m : MPCMeasurement)
    (last : option (MPCJointState (F:=double))) (cmd : JointPVT) : Prop :=
  pvt_q cmd = map (fun i => float_of_double (at_joint (js_q ref) i)) (seq 0 6) /\
  pvt_dq_limit cmd = map (fun i => float_of_double (min (at_joint (m_velocity (session_limits c)) i)
    (max (decimal 1 4) (mul (needed_speed ref m last i) (float (velocity_excitation c)))))) (seq 0 6) /\
  pvt_current_limit_norm cmd = repeat (current_limit_norm c) 6.

(** At the end of a pass that read the clock, the plans, the time of the target,
    the feedback, and the clock again twice, and saw the session running. *)
Definition guarded (c : MPCControlConfig) (h : list (event mpc_call)) (cmd : JointPVT) : Prop :=
  exists h0 now p target_time m checked submit plan transition since due,
  h = h0 ++ [Event Now now; Event PlansRead p; Event LoadTargetTime target_time;
             Event OutputRead (Some m); Event Now checked; Event Now submit; Event LoadReason None] /\
  ob_followed (observed h) = Some (plan, transition, since) /\ ob_due (observed h) = Some due /\
  let ref := reference_at (plan, transition, since) now in
  (* the deadline is met at the start and at the end, the target, the feedback and the plan are fresh *)
  now - due <= output_lateness_limit c /\ submit - due <= output_lateness_limit c /\
  now - target_time <= target_timeout c /\
  sound_feedback c m checked /\
  checked - m_origin plan <= plan_timeout c /\
  (* the plan came through the mailbox, and it and the transition respect the limits *)
  m_generation plan <> 0 /\
  (exists st, In (Event PlansRead (st, Some plan)) h) /\
  segments_within (m_knots plan) kDt (session_limits c) = true /\
  within transition (session_limits c) = true /\
  (* the arm is where the reference is, and the command follows the reference *)
  (forall i, (i < 6)%nat ->
    ltb (float (max_tracking_error c))
      (abs (sub (at_joint (js_q ref) i) (float (nth i (as_q (m_state m)) 0)))) = false) /\
  follows c ref m (ob_reference (observed h)) cmd.

(** The worker has not requested a stop. *)
Definition no_fault (ev : event mpc_call) : Prop :=
  match ev with
  | Event c r => match c in mpc_call R return R -> Prop with ExchangeReason _ => fun _ => False | _ => fun _ => True end r
  end.

Definition command_ok (c : MPCControlConfig) (h : list (event mpc_call)) (ev : event mpc_call) : Prop :=
  match ev with
  | Event e r =>
      match e in mpc_call R return R -> Prop with
      | Send cmd => fun _ => guarded c h cmd /\ Forall no_fault h
      | _ => fun _ => True
      end r
  end.

Definition from_mailbox (h : list (event mpc_call)) (p : MPCPlan) : Prop :=
  m_generation p = 0 \/ exists st, In (Event PlansRead (st, Some p)) h.

(** The locals of the worker are what the observer says. *)
Definition followed (s : executor) (f : option (MPCPlan * MPCCubic (F:=double) * Z)) : Prop :=
  match f with
  | None => m_generation (ex_active s) = 0
  | Some (plan, transition, since) =>
      ex_active s = plan /\ ex_bridge s = Some transition /\ ex_bridge_start s = since
  end.
Definition agrees (h : list (event mpc_call)) (s : executor) : Prop :=
  ob_latest (observed h) = ex_new s /\ ob_due (observed h) = Some (ex_next s) /\
  ob_feedback (observed h) = None /\ ob_reference (observed h) = ex_previous s /\
  followed s (ob_followed (observed h)).

Definition plans_inv (c : MPCControlConfig) (h : list (event mpc_call)) (s : executor) : Prop :=
  Forall no_fault h /\ from_mailbox h (ex_new s) /\
  (m_generation (ex_active s) <> 0 ->
    from_mailbox h (ex_active s) /\
    segments_within (m_knots (ex_active s)) kDt (session_limits c) = true /\
    exists b, ex_bridge s = Some b /\ within b (session_limits c) = true).
Definition inv (c : MPCControlConfig) (h : list (event mpc_call)) (s : executor) : Prop :=
  plans_inv c h s /\ agrees h s.

Definition goes_on (c : MPCControlConfig) {A} (h : list (event mpc_call)) (out : executor * (leaving + A)) : Prop :=
  match snd out with inl _ => True | inr _ => inv c h (fst out) end.

Lemma from_mailbox_app h l p : from_mailbox h p -> from_mailbox (h ++ l) p.
Proof. intros [H|[st H]]; [by left|]. right. exists st. apply in_or_app. by left. Qed.

Lemma plans_inv_app c h l s : Forall no_fault l -> plans_inv c h s -> plans_inv c (h ++ l) s.
Proof.
  intros Hl (Hf & Hn & Ha). split; [by apply Forall_app|]. split; [by apply from_mailbox_app|].
  intros Hg. destruct (Ha Hg) as (Hm & H). split; [by apply from_mailbox_app|done].
Qed.

(** No [Send], and nothing to show about what comes before. *)
Definition harmless (ev : event mpc_call) : Prop :=
  match ev with
  | Event e r => match e in mpc_call R return R -> Prop with Send _ => fun _ => False | _ => fun _ => True end r
  end.

Lemma harmless_ok c h ev : harmless ev -> command_ok c h ev.
Proof. by destruct ev as [R [] r]. Qed.

Lemma only_safe {A} ok P h (p : mpc A) (post : _ -> _ -> Prop) :
  only P p -> (forall h ev, P ev -> ok h ev) -> (forall l a, Forall P l -> post (h ++ l) a) -> safe ok h p post.
Proof.
  intros Hp Hok Hpost. revert h Hp Hpost. induction p as [a|R e k IH]; intros h Hp Hpost.
  - cbn. rewrite <- (app_nil_r h). by apply Hpost.
  - intros r. destruct (Hp r). split; [by apply Hok|]. apply IH; [done|]. intros l a Hl.
    rewrite <- app_assoc. apply Hpost. by constructor.
Qed.

Lemma safe_act ok P {S R A} h (p : mpc R) (f : R -> worker S A) s (post : _ -> _ -> Prop) :
  only P p -> (forall h ev, P ev -> ok h ev) ->
  (forall l r, Forall P l -> safe ok (h ++ l) (f r s) post) -> safe ok h ((act p ≫= f) s) post.
Proof.
  intros Hp Hok Hf. apply (safe_bind ok h (r ← p; mret (s, inr r)) _ (fun h' out =>
    exists l r, h' = h ++ l /\ Forall P l /\ out = (s, inr r))).
  - apply (safe_bind ok h p _ (fun h' r => exists l, h' = h ++ l /\ Forall P l)).
    + apply (only_safe _ P); [done|done|]. intros l r Hl. by exists l.
    + intros h' r (l & -> & Hl). by exists l, r.
  - intros h' out (l & r & -> & Hl & ->). by apply Hf.
Qed.

Lemma fault_harmless r : only harmless (fault r).
Proof. intros won. split; [done|]. destruct won; [|apply only_ret]. intros []. split; [done|]. intros []. by split. Qed.

Lemma safe_fail c h {A} r s (post : _ -> executor * (leaving + A) -> Prop) :
  (forall h', post h' (s, inl Returned)) -> safe (command_ok c) h (fail r s) post.
Proof. intros Hp. apply (safe_act _ harmless); [apply fault_harmless|apply harmless_ok|]. intros l u _. apply Hp. Qed.

(** What the observer makes no note of, but for the clock. *)
Definition unseen (ev : event mpc_call) : Prop :=
  match ev with
  | Event e r =>
      match e in mpc_call R return R -> Prop with
      | PlansRead | OutputRead | Send _ | OutputStatusPublish _ | ExchangeReason _ => fun _ => False
      | _ => fun _ => True
      end r
  end.

Lemma observed_snoc h ev : observed (h ++ [ev]) = observe (observed h) ev.
Proof. unfold observed. by rewrite fold_left_app. Qed.

Lemma unseen_ok c h ev : unseen ev -> command_ok c h ev.
Proof. by destruct ev as [R [] r]. Qed.
Lemma unseen_no_fault ev : unseen ev -> no_fault ev.
Proof. by destruct ev as [R [] r]. Qed.

Lemma agrees_snoc h ev s : unseen ev -> agrees h s -> agrees (h ++ [ev]) s.
Proof.
  unfold agrees. rewrite observed_snoc. intros Hu (Hl & Hd & Hm & Hr & Hf).
  destruct ev as [R [] r]; try done. cbn. by rewrite Hd, Hm.
Qed.

(** One call that keeps the invariant. *)
Lemma inv_snoc c h ev s : unseen ev -> inv c h s -> inv c (h ++ [ev]) s.
Proof.
  intros He [Hp Ha]. split; [|by apply agrees_snoc].
  apply plans_inv_app; [|done]. by apply Forall_singleton, unseen_no_fault.
Qed.

Lemma safe_waitUntil c fuel t e h s :
  (forall r, unseen (Event e r)) -> inv c h s -> safe (command_ok c) h (waitUntil fuel t e s) (goes_on c).
Proof.
  intros He. revert h. induction fuel as [|fuel IH]; intros h Hi; [done|]. cbn [waitUntil].
  apply safe_stopped; [done| |].
  - intros r. apply safe_stopped; [done|intros r'|]; cbn; by repeat apply inv_snoc.
  - apply safe_worker_call. intros now. split; [done|]. destruct (now <? t).
    + apply safe_worker_call. intros u. split; [apply unseen_ok, He|]. apply IH. apply inv_snoc; [apply He|]. by repeat apply inv_snoc.
    + apply safe_stopped; [done|intros r'|]; cbn; by repeat apply inv_snoc.
Qed.

(** Changes of the status are none of its concern. *)
Lemma inv_status c h f s : inv c h s -> inv c h (ex_with_status f s).
Proof. done. Qed.

(** A part of a pass that fails, or goes on with [Q]. *)
Definition or_leaves (Q : list (event mpc_call) -> executor -> Prop) {A} (h : list (event mpc_call))
    (out : executor * (leaving + A)) : Prop :=
  match snd out with inl _ => True | inr _ => Q h (fst out) end.

Lemma safe_part c Q {A B} h (p : worker executor A) (f : A -> worker executor B) s :
  safe (command_ok c) h (p s) (or_leaves Q) ->
  (forall h' s' a, Q h' s' -> safe (command_ok c) h' (f a s') (goes_on c)) ->
  safe (command_ok c) h ((p ≫= f) s) (goes_on c).
Proof. intros Hp Hf. apply (safe_worker _ h p f s (or_leaves Q)); [done| |done]. intros h' s' a. apply Hf. Qed.

Lemma safe_deadline c t h s :
  safe (command_ok c) h (check_deadline c t s) (or_leaves (fun h' s' =>
    h' = h /\ s' = ex_with_status (st_late (millis (t - ex_next s))) s /\
    t - ex_next s <= output_lateness_limit c)).
Proof.
  unfold check_deadline. apply safe_gets, safe_modify. unfold id. destruct (_ <? _) eqn:Hlt.
  - by apply safe_fail.
  - cbn. split; [done|]. split; [done|]. by apply Z.ltb_ge.
Qed.

(** The part of a pass that sends: from the reading of the clock on. *)
Definition pass_start (now : Z) (p : mailbox MPCPlan) (target_time : Z) (m : MPCMeasurement) (checked : Z)
    : list (event mpc_call) :=
  [Event Now now; Event PlansRead p; Event LoadTargetTime target_time; Event OutputRead (Some m); Event Now checked].

(** What the observer notes of it: all but what it says of the plan followed
    is in the locals when the checks begin. *)
Lemma observed_start h now p t m checked s :
  agrees h s ->
  let ob := observed (h ++ pass_start now p t m checked) in
  let latest := default (ex_new s) (snd p) in
  ob_latest ob = latest /\ ob_due ob = Some (ex_next s) /\ ob_feedback ob = None /\
  ob_reference ob = ex_previous s /\ ob_now ob = now /\
  exists f, followed s f /\
    ob_followed ob =
      if m_generation latest =? m_generation (ex_active s) then f
      else Some (latest, transition (ex_with_new (snd p) s) m now, now).
Proof.
  intros (Hl & Hd & Hm & Hr & Hf). cbv zeta. unfold observed. rewrite fold_left_app.
  fold (observed h). generalize dependent (observed h). intros ob Hl Hd Hm Hr Hf.
  cbn [pass_start fold_left observe snd]. cbn -[adopted]. rewrite Hd, Hr, Hl.
  split_and!; try done. exists (ob_followed ob). split; [done|].
  unfold adopted, followed_generation. cbn -[transition]. rewrite Hm, Hl.
  unfold transition, anchor, reference_at. cbn [ex_active ex_with_new ex_new ex_bridge ex_bridge_start s_sample].
  destruct (ob_followed ob) as [[[plan b] since]|].
  - destruct Hf as (Ha & Hb & Hs). rewrite Ha. destruct (_ =? _); [done|].
    destruct (m_generation plan =? 0); [done|]. unfold s_sample. cbn. by rewrite Ha, Hb, Hs.
  - cbn in Hf. rewrite Hf. by destruct (_ =? _).
Qed.

(** After the checks of the plan, an active plan is fresh and within the limits,
    and it is the one that the observer takes for the plan followed. *)
Lemma safe_check_plan c h0 now p t m checked s :
  let h := h0 ++ pass_start now p t m checked in
  plans_inv c h (ex_with_new (snd p) s) -> agrees h0 s ->
  safe (command_ok c) h (check_plan c m now checked (ex_with_new (snd p) s)) (or_leaves (fun h' s' =>
    h' = h /\ inv c h s' /\ ex_next s' = ex_next s /\
    (m_generation (ex_active s') <> 0 -> checked - m_origin (ex_active s') <= plan_timeout c))).
Proof.
  cbv zeta. intros Hi Hagree. destruct (observed_start h0 now p t m checked s Hagree)
    as (Hl & Hd & Hm & Hr & _ & f & Hf & Hfo).
  unfold check_plan. apply safe_gets. unfold id. cbn [ex_new ex_active ex_with_new].
  set (latest := default (ex_new s) (snd p)) in *. set (h := h0 ++ _) in *.
  destruct (_ && _ && _) eqn:Hstale; [by apply safe_fail|].
  destruct (m_generation latest =? m_generation (ex_active s)) eqn:Hg; cbn [negb].
  - cbn. split; [done|]. split; [split; [exact Hi|]; unfold agrees; by rewrite Hfo|]. split; [done|]. intros Hn.
    rewrite andb_true_r in Hstale. apply andb_false_iff in Hstale as [Hs|Hs]; [|by apply Z.ltb_ge].
    apply negb_false_iff, Z.eqb_eq in Hs. done.
  - unfold take_plan. apply safe_gets. unfold id. cbn [ex_new ex_with_new]. fold latest.
    destruct (plan_timeout c <? checked - m_origin latest) eqn:Hage; [by apply safe_fail|].
    destruct (segments_within _ _ _) eqn:Hseg; [|by apply safe_fail].
    destruct (within _ _) eqn:Hw; [|by apply safe_fail]. cbn -[transition]. split; [done|].
    destruct Hi as (Hnf & Hn & Ha). split; [split|split; [done|intros _; by apply Z.ltb_ge]].
    + split; [done|]. split; [done|]. intros _. split; [done|]. split; [done|]. by eexists.
    + unfold agrees. rewrite Hfo. by split_and!.
Qed.

(** The conditions of [validMeasurement]. *)
Lemma sound_measurement c m t : measurement_fault c m t = None -> sound_feedback c m t.
Proof.
  unfold measurement_fault, sound_feedback. destruct (m_connected m); [|done]. cbn [negb].
  destruct (m_received m =? 0) eqn:H0; [done|]. destruct (t <? m_received m) eqn:H1; [done|].
  destruct (state_timeout c <? t - m_received m) eqn:H2; [done|]. cbn [orb].
  destruct (as_errors (m_state m) =? 0) eqn:H3; [|done]. cbn [negb].
  destruct (existsb _ _) eqn:H4; [done|]. intros _.
  apply Z.eqb_neq in H0. apply Z.ltb_ge in H1. apply Z.ltb_ge in H2. apply Z.eqb_eq in H3.
  do 5 (split; [done|]). intros i Hi.
  assert (joint_invalid (session_limits c) m i = false) as Hj.
  { apply not_true_is_false. intros Ht. rewrite (proj2 (existsb_exists _ _)) in H4; [done|].
    exists i. split; [|done]. apply List.in_seq. lia. }
  unfold joint_invalid, gtb in Hj. unfold sound_joint.
  apply orb_false_iff in Hj as [Hj Hv]. apply orb_false_iff in Hj as [Hj Hu]. apply orb_false_iff in Hj as [Hj Hlo].
  apply orb_false_iff in Hj as [Hq%negb_false_iff Hdq%negb_false_iff]. by split_and!.
Qed.

Lemma safe_send_reference c h0 now p t m checked s :
  let h := h0 ++ pass_start now p t m checked in
  inv c h s -> ob_now (observed h) = now -> m_generation (ex_active s) <> 0 ->
  now - ex_next s <= output_lateness_limit c ->
  now - t <= target_timeout c -> measurement_fault c m checked = None ->
  checked - m_origin (ex_active s) <= plan_timeout c ->
  safe (command_ok c) h (send_reference c m now checked s) (or_leaves (inv c)).
Proof.
  cbv zeta. set (h := h0 ++ _). intros Hi Hnow Hg Hlate0 Ht Hm Hp.
  unfold send_reference. apply safe_gets. unfold id.
  destruct (existsb _ _) eqn:Htrack; [by apply safe_fail|]. apply safe_worker_call. intros submit. split; [done|].
  apply (safe_worker _ _ _ _ _ (or_leaves (fun h' s' => h' = h ++ [Event Now submit] /\
    s' = ex_with_status (st_late (millis (submit - ex_next s))) s /\
    submit - ex_next s <= output_lateness_limit c))); [apply safe_deadline| |done].
  unfold or_leaves. cbn [fst snd]. intros h' s' _ (-> & -> & Hlate). apply safe_stopped; [done|done|].
  set (h1 := (h ++ [Event Now submit]) ++ [Event LoadReason None]).
  assert (inv c h1 s) as Hi1 by by repeat apply inv_snoc.
  assert (ob_now (observed h1) = now) as Hnow1 by (unfold h1; by rewrite !observed_snoc).
  destruct Hi1 as [(Hnf & Hnew & Ha) Hag]. pose proof Hag as (Hl & Hd & Hfb & Hr & Hfo).
  destruct (Ha Hg) as ([?|[st Hst]] & Hseg & b & Hb & Hw); [done|].
  destruct (ob_followed (observed h1)) as [[[plan transition] since]|] eqn:Hof; [|done].
  destruct Hfo as (Hplan & Hbr & Hsince).
  assert (s_sample s now = reference_at (plan, transition, since) now) as Href.
  { unfold s_sample, reference_at. by rewrite Hplan, Hbr, Hsince. }
  rewrite Href in *. apply safe_worker_call. intros sent. split.
  - split; [|done].
    exists h0, now, p, t, m, checked, submit, plan, transition, since, (ex_next s).
    rewrite Hplan in *. rewrite Hof, Hd, Hr. cbv zeta. split_and!; try done.
    + unfold h1, h. by rewrite <- !app_assoc.
    + by apply sound_measurement.
    + by exists st.
    + congruence.
    + intros i Hlt. apply not_true_is_false. intros Hgt.
      rewrite (proj2 (existsb_exists _ _)) in Htrack; [done|]. exists i. split; [apply List.in_seq; lia|done].
  - destruct sent; [|done]. cbn. split.
    + apply plans_inv_app; [by repeat constructor|]. done.
    + unfold agrees. rewrite observed_snoc. cbn -[reference_at]. rewrite Hof, Hl, Hd, Hfb, Hnow1.
      by split_and!.
Qed.

(** The next period, as the worker counts and as the observer does. *)
Lemma next_period_due due done_ : snd (next_period output_period due done_) = due_after due done_.
Proof.
  unfold next_period, due_after, output_period. cbv zeta. destruct (Z.leb_spec (due + 2000000) done_) as [Hle|Hlt]; cbn [snd].
  - rewrite Z.quot_div_nonneg by lia. replace (done_ - due) with (done_ - (due + 2000000) + 1 * 2000000) by lia.
    rewrite Z.div_add by lia.
    pose proof (Z.div_pos (done_ - (due + 2000000)) 2000000 ltac:(lia) ltac:(lia)). lia.
  - pose proof (Z.div_lt_upper_bound (done_ - due) 2000000 1 ltac:(lia) ltac:(lia)). lia.
Qed.

Lemma safe_end_period w c h s :
  inv c h s -> safe (command_ok c) h (end_period w c s) (goes_on c).
Proof.
  intros Hi. unfold end_period. apply safe_worker_call. intros done_. split; [done|].
  eapply safe_part; [apply safe_deadline|]. intros h' s' _ (-> & -> & _).
  apply safe_gets, safe_modify, safe_gets. apply safe_worker_call. intros published. split; [done|].
  destruct published; [|by apply safe_fail]. apply safe_gets.
  apply (safe_part c (inv c)).
  - apply (safe_mono _ _ _ (goes_on c)); [apply safe_waitUntil; [done|]|done].
    destruct (inv_snoc c h (Event Now done_) s I Hi) as [Hp (Hl & Hd & Hm & Hr & Hf)]. split.
    + apply plans_inv_app; [by repeat constructor|exact Hp].
    + unfold agrees. rewrite observed_snoc. cbn. rewrite Hl, Hd, Hm, Hr. split_and!; try done.
      rewrite next_period_due, observed_snoc. done.
  - intros h' s' [] Hi'; [done|done].
Qed.

Lemma safe_output_pass w c h s : inv c h s -> safe (command_ok c) h (output_pass w c s) (goes_on c).
Proof.
  intros Hi. unfold output_pass. apply safe_worker_call. intros now. split; [done|]. apply safe_worker_call. intros p. split; [done|].
  apply safe_modify. destruct (unreadable (fst p)); [by apply safe_fail|]. apply safe_worker_call. intros t. split; [done|].
  eapply safe_part; [apply safe_deadline|]. intros h' s' _ (-> & -> & Hlate).
  destruct (target_timeout c <? now - t) eqn:Ht; [by apply safe_fail|]. apply Z.ltb_ge in Ht.
  apply safe_worker_call. intros [m|]; (split; [done|]); [|done]. apply safe_worker_call. intros checked. split; [done|].
  destruct (measurement_fault c m checked) eqn:Hm; [by apply safe_fail|].
  rewrite <- !app_assoc. cbn [app]. change (h ++ _) with (h ++ pass_start now p t m checked).
  destruct Hi as [Hi Hagree]. set (f := st_late _).
  assert (plans_inv c (h ++ pass_start now p t m checked) (ex_with_new (snd p) (ex_with_status f s))) as Hi1.
  { destruct (plans_inv_app c h (pass_start now p t m checked) s ltac:(by repeat constructor) Hi) as (Hf & Hn & Ha).
    split; [done|]. split; [|done]. cbn. destruct p as [st [p'|]]; cbn; [|done].
    right. exists st. apply in_or_app. right. cbn. tauto. }
  destruct (observed_start h now p t m checked s Hagree) as (_ & _ & _ & _ & Hnow & _).
  eapply safe_part; [by apply (safe_check_plan c h now p t m checked (ex_with_status f s))|].
  intros h' s2 _ (-> & Hi2 & Hnext & Hage).
  apply (safe_part c (inv c)); [|intros h' s' _; apply safe_end_period].
  unfold follow_plan. apply safe_gets. unfold id. destruct (m_generation (ex_active s2) =? 0) eqn:Hg; cbn [negb].
  - apply safe_worker_call. intros first. split; [done|]. destruct (_ <? _); [by apply safe_fail|]. by apply inv_snoc.
  - apply Z.eqb_neq in Hg. apply safe_send_reference; try done; [|by apply Hage].
    rewrite Hnext. exact Hlate.
Qed.

Lemma safe_output_passes fuel w c h s :
  inv c h s -> safe (command_ok c) h (output_passes fuel w c s) (goes_on c).
Proof.
  revert h s. induction fuel as [|fuel IH]; intros h s Hi; [done|]. cbn [output_passes].
  apply safe_stopped; [done|intros r; by apply inv_snoc|].
  apply (safe_part c (inv c)); [by apply safe_output_pass, inv_snoc|]. intros h' s' _. apply IH.
Qed.

Lemma finish_only P {S} publish (out : S * (leaving + unit)) :
  (forall s r, P (Event (publish s) r)) -> (forall r, only P (fault r)) -> only P (finish publish out).
Proof.
  intros Hp Hf. assert (forall s, only P (published ← call (publish s);
    _ ← (if published : bool then mret tt else fault kInternalError); mret true)) as Ht.
  { intros s r. split; [apply Hp|]. apply only_bind; [|done]. destruct r; [done|apply Hf]. }
  destruct out as [s [[]|[]]]; unfold finish; cbn [fst snd]; [exact (Ht s)| |done|exact (Ht s)].
  apply only_bind; [apply Hf|]. intros []. apply (Ht s).
Qed.

(** C8: every command that the output worker sends is guarded ([outputLoop]).  It
    comes at the end of a pass that read the clock, looked for a plan, loaded the
    time of the target, read the feedback, read the clock twice more and saw the
    session running, in this order and with nothing in between.  By those
    readings the target, the feedback and the plan were fresh, and the deadline
    of the period was met when the pass began and when the command was
    submitted; the feedback was from a connected arm without errors, within the
    limits of its joints; the plan followed is the one that the history of calls
    makes it ([observed]): it came through the mailbox, all its segments and the
    transition to it, which started where the reference or at first the arm was,
    are within the limits; the reference at the start of the pass was no further
    from the arm than the tracking limit; and the command is the one for this
    reference and the last one sent.  No command follows a stop that the worker
    requested. *)
Theorem outputs_guarded fuel w c l ended l1 cmd sent l2 :
  runs (outputLoop fuel w c) l ended -> l = l1 ++ Event (Send cmd) sent :: l2 ->
  guarded c l1 cmd /\ Forall no_fault l1.
Proof.
  intros Hr Hl. assert (safe (command_ok c) [] (outputLoop fuel w c) (fun _ _ => True)) as Hs.
  { apply (safe_bind _ _ _ _ (fun _ _ => True)).
    - intros valid. split; [done|]. destruct valid; cbn [negb]; [|by apply safe_fail].
      apply (safe_worker_call (command_ok c)). intros []. split; [done|]. apply safe_stopped; [done|done|].
      apply safe_worker_call. intros now. split; [done|]. apply safe_modify.
      eapply safe_mono; [apply safe_output_passes|done]. split; [|by cbn].
      split; [by repeat constructor|]. split; [by left|]. intros Hn. done.
    - intros h out _. apply (only_safe _ harmless); [by apply finish_only; [|apply fault_harmless]|apply harmless_ok|done]. }
  destruct (safe_runs _ _ _ _ _ _ Hs Hr) as [Hok _]. apply (Hok l1 (Event (Send cmd) sent) l2 Hl).
Qed.

(** ** Plans *)

(** What the history says of the planner's locals. *)
Definition target_after (t : CartesianPose) (ev : event mpc_call) : CartesianPose :=
  match ev with
  | Event e r =>
      match e in mpc_call R return R -> CartesianPose with
      | TargetsRead => fun answer => default t (snd answer)
      | _ => fun _ => t
      end r
  end.
Definition latest_target (h : list (event mpc_call)) : CartesianPose := fold_left target_after h pose0.

Definition is_publication (ev : event mpc_call) : bool :=
  match ev with
  | Event e _ => match e with PlansPublish _ => true | _ => false end
  end.
Definition publications (h : list (event mpc_call)) : Z := Z.of_nat (count_calls is_publication h).

Definition planned (c : MPCControlConfig) (h : list (event mpc_call)) (p : MPCPlan) : Prop :=
  exists h0 m now t begin_ knots solved done_,
  h = h0 ++ [Event PlanRead (Some m); Event Now now; Event TargetsRead t; Event Now begin_;
             Event (Solve (m_state m) (latest_target h)
                      {| m_knots := knots; m_origin := m_received m; m_generation := 0 |}) (Some 0, solved);
             Event Now done_; Event LoadReason None] /\
  measurement_fault c m now = None /\ unreadable (fst t) = false /\
  m_knots p = m_knots solved /\ m_origin p = m_origin solved /\
  m_generation p = u64 (publications h + 1).

Definition plan_ok (c : MPCControlConfig) (h : list (event mpc_call)) (ev : event mpc_call) : Prop :=
  match ev with
  | Event e r =>
      match e in mpc_call R return R -> Prop with
      | PlansPublish p => fun _ => planned c h p
      | _ => fun _ => True
      end r
  end.

Definition pinv (h : list (event mpc_call)) (s : planner) : Prop :=
  pl_target s = latest_target h /\ pl_generation s = u64 (publications h).

Definition pgoes_on {A} (h : list (event mpc_call)) (out : planner * (leaving + A)) : Prop :=
  match snd out with inl _ => True | inr _ => pinv h (fst out) end.

(** Calls that change neither. *)
Definition plain (ev : event mpc_call) : Prop := (forall t, target_after t ev = t) /\ is_publication ev = false.

Lemma pinv_snoc h ev s : plain ev -> pinv h s -> pinv (h ++ [ev]) s.
Proof.
  intros [Ht Hp] [H1 H2]. unfold pinv, latest_target, publications.
  rewrite fold_left_app, count_calls_app. cbn. rewrite Ht, Hp, !Nat.add_0_r. done.
Qed.

Lemma plain_ok c h ev : is_publication ev = false -> plan_ok c h ev.
Proof. by destruct ev as [R [] r]. Qed.

Lemma fault_unpublished r : only (fun ev => is_publication ev = false) (fault r).
Proof. intros won. split; [done|]. destruct won; [|done]. intros []. split; [done|]. intros []. by split. Qed.

Lemma plan_fault c h {A} r s (post : _ -> planner * (leaving + A) -> Prop) :
  (forall h', post h' (s, inl Returned)) -> safe (plan_ok c) h (fail r s) post.
Proof.
  intros Hp. apply (safe_act _ (fun ev => is_publication ev = false)); [apply fault_unpublished|apply plain_ok|].
  intros l u _. apply Hp.
Qed.

Lemma plan_waitUntil c fuel t h s :
  pinv h s -> safe (plan_ok c) h (waitUntil fuel t (PlanAcquireUntil t) s) pgoes_on.
Proof.
  revert h. induction fuel as [|fuel IH]; intros h Hi; [done|]. cbn [waitUntil].
  apply safe_stopped; [done| |].
  - intros r. apply safe_stopped; [done|intros r'|]; cbn; by repeat apply pinv_snoc.
  - apply safe_worker_call. intros now. split; [done|]. destruct (now <? t).
    + apply safe_worker_call. intros []. split; [done|]. apply IH. by repeat apply pinv_snoc.
    + apply safe_stopped; [done|intros r'|]; cbn; by repeat apply pinv_snoc.
Qed.

Lemma plan_part c {A B} h (p : worker planner A) (f : A -> worker planner B) s :
  safe (plan_ok c) h (p s) pgoes_on ->
  (forall h' s' a, pinv h' s' -> safe (plan_ok c) h' (f a s') pgoes_on) ->
  safe (plan_ok c) h ((p ≫= f) s) pgoes_on.
Proof. intros Hp Hf. apply (safe_worker _ h p f s pgoes_on); [done| |done]. intros h' s' a. apply Hf. Qed.

Lemma safe_publish_plan c h s p :
  pinv h s -> (forall g, g = u64 (publications h + 1) ->
    planned c h {| m_knots := m_knots p; m_origin := m_origin p; m_generation := g |}) ->
  safe (plan_ok c) h (publish_plan p s) pgoes_on.
Proof.
  intros [Ht Hg] Hp. assert (u64 (pl_generation s + 1) = u64 (publications h + 1)) as Hnext.
  { rewrite Hg. apply Zplus_mod_idemp_l. }
  unfold publish_plan. apply safe_gets, safe_modify, safe_worker_call. intros published. split; [by apply Hp|].
  destruct published; [|by apply plan_fault]. cbn. unfold pinv, latest_target, publications.
  rewrite fold_left_app, count_calls_app. cbn. split; [done|]. rewrite Hnext. f_equal. unfold publications. lia.
Qed.

Lemma safe_plan_pass w c h s : pinv h s -> safe (plan_ok c) h (plan_pass w c s) pgoes_on.
Proof.
  intros Hi. unfold plan_pass. apply safe_worker_call. intros [m|]; (split; [done|]); [|done].
  apply safe_worker_call. intros now. split; [done|]. destruct (measurement_fault c m now) eqn:Hm; [by apply plan_fault|].
  apply safe_worker_call. intros t. split; [done|]. apply safe_modify.
  destruct (unreadable (fst t)) eqn:Ht; [by apply plan_fault|].
  apply safe_worker_call. intros begin_. split; [done|]. apply safe_gets. apply safe_worker_call. intros [result solved]. split; [done|].
  apply safe_worker_call. intros done_. split; [done|]. apply safe_modify.
  rewrite <- !app_assoc. cbn [app fst snd]. set (h1 := h ++ _). set (s1 := with_solve _ _ _ _).
  assert (pinv h1 s1) as Hi1.
  { destruct Hi as [H1 H2]. unfold pinv, h1, latest_target, publications.
    rewrite fold_left_app, count_calls_app. cbn. rewrite H1, Nat.add_0_r. done. }
  unfold after_solve. apply safe_stopped; [done|done|].
  assert (pinv (h1 ++ [Event LoadReason None]) s1) as Hi2 by by apply pinv_snoc.
  apply (plan_part c).
  - destruct (default (-2) result =? 0) eqn:Hr; [|done]. apply safe_publish_plan; [done|]. intros g ->.
    destruct result as [result|]; [|done]. apply Z.eqb_eq in Hr. cbn in Hr. subst result.
    exists h, m, now, t, begin_, (m_knots plan0), solved, done_. split_and!; try done.
    destruct Hi2 as [Htarget _]. rewrite <- Htarget. unfold h1. by rewrite <- app_assoc.
  - intros h' s' _ Hi'. apply safe_gets, safe_modify, safe_gets. apply safe_worker_call. intros published. split; [done|].
    destruct published; [|by apply plan_fault]. apply safe_gets.
    apply (plan_part c); [apply plan_waitUntil; apply pinv_snoc; [done|exact Hi']|]. by intros h'' s'' [] ?.
Qed.

Lemma safe_plan_passes fuel w c h s : pinv h s -> safe (plan_ok c) h (plan_passes fuel w c s) pgoes_on.
Proof.
  revert h s. induction fuel as [|fuel IH]; intros h s Hi; [done|]. cbn [plan_passes].
  apply safe_stopped; [done|intros r; by apply pinv_snoc|].
  apply (plan_part c); [by apply safe_plan_pass, pinv_snoc|]. intros h' s' _. apply IH.
Qed.

(** C26: what the planner publishes ([planLoop]).  Every plan it publishes is the
    result of a solve that returned 0 in the same pass, for a measurement that
    the session accepts and for the latest target that the mailbox has handed
    out, with the reception of that measurement as the origin that the solver
    is given; the session was still running after the solve; and the plans are
    numbered 1, 2, 3, ... *)
Theorem plans_are_solutions fuel w c l ended l1 p published l2 :
  runs (planLoop fuel w c) l ended -> l = l1 ++ Event (PlansPublish p) published :: l2 -> planned c l1 p.
Proof.
  intros Hr Hl. assert (safe (plan_ok c) [] (planLoop fuel w c) (fun _ _ => True)) as Hs.
  { intros []. split; [done|]. intros now. split; [done|].
    apply (safe_bind _ _ _ _ (fun _ _ => True)).
    - apply (safe_mono _ _ _ pgoes_on); [by apply safe_plan_passes|done].
    - intros h out _. apply (only_safe _ (fun ev => is_publication ev = false)); [|apply plain_ok|done].
      by apply finish_only; [|apply fault_unpublished]. }
  destruct (safe_runs _ _ _ _ _ _ Hs Hr) as [Hok _]. apply (Hok l1 (Event (PlansPublish p) published) l2 Hl).
Qed.

(** ** A session that holds a position

    The arm is at 1 rad in all its joints, and the solver keeps it there; after
    2 ms a caller stops the session. *)

Definition arm_at_one : ArmState := {|
  as_time := 0; as_seq := 1; as_mode := 0; as_source_timestamp_us := 0; as_errors := 0;
  as_q := repeat 1065353216 6; as_dq := repeat 0 6; as_tau := repeat 0 6; as_base_gravity := repeat 0 3;
  as_O_T_EE := repeat 0 16; as_F_ext := repeat 0 6; as_gripper_q := 0; as_gripper_dq := 0; as_gripper_tau := 0 |}.
Definition feedback0 : MPCMeasurement := {|
  m_state := arm_at_one; m_received := 999000; m_connected := true; m_meas_generation := 1 |}.
Definition hold : MPCPlan := {|
  m_knots := repeat {| js_q := constant 1; js_dq := constant 0 |} 6; m_origin := 999000; m_generation := 1 |}.
Definition outside (R : Type) (e : mpc_call R) (clock : Z) : R * Z :=
  match e in mpc_call R return R * Z with
  | Now => (clock, clock + 1000)
  | OutputRead => (Some feedback0, clock)
  | PlanRead => (Some feedback0, clock)
  | PlansRead => ((WL_OK, Some hold), clock)
  | TargetsRead => ((WL_OK, Some pose0), clock)
  | Solve _ _ p => ((Some 0, {| m_knots := m_knots hold; m_origin := m_origin p; m_generation := 0 |}), clock)
  | LoadReason => (if clock <? 2000000 then None else Some kStopped, clock)
  | LoadTargetTime => (999000, clock)
  | LoadFirstTargetTime => (999000, clock)
  | PlanAcquireUntil t => (tt, t)
  | OutputAcquireUntil t => (tt, t)
  | TimerValid => (true, clock)
  | Send _ => (true, clock)
  | TargetsPublish _ => (true, clock)
  | PlansPublish _ => (true, clock)
  | PlannerStatusPublish _ => (true, clock)
  | OutputStatusPublish _ => (true, clock)
  | PlannerStatusRead => ((WL_ERR_NO_DATA, None), clock)
  | OutputStatusRead => ((WL_ERR_NO_DATA, None), clock)
  | ExchangeReason _ => (true, clock)
  | LoadStarted => (true, clock)
  | OutputJoinable => (true, clock)
  | PlannerJoinable => (true, clock)
  | StoreStarted => (tt, clock) | StoreTargetTime _ => (tt, clock) | StoreFirstTargetTime _ => (tt, clock)
  | PlanRelease => (tt, clock) | OutputRelease => (tt, clock) | PlanAcquire => (tt, clock)
  | OutputAcquire => (tt, clock) | WriteLock => (tt, clock) | WriteUnlock => (tt, clock)
  | JoinLock => (tt, clock) | JoinUnlock => (tt, clock) | JoinOutput => (tt, clock) | JoinPlanner => (tt, clock)
  end.

Lemma runs_middle {A} (p : mpc A) (n : nat) ev clock :
  fst (interp outside p clock) !! n = Some ev ->
  runs p (take n (fst (interp outside p clock)) ++ ev :: drop (S n) (fst (interp outside p clock)))
    (snd (interp outside p clock)).
Proof. intros Hn. rewrite take_drop_middle by done. apply interp_runs. Qed.

Lemma outputs_guarded_witness :
  exists l1 cmd sent l2,
    runs (outputLoop 3 3 config0) (l1 ++ Event (Send cmd) sent :: l2) true /\ guarded config0 l1 cmd.
Proof.
  eassert (fst (interp outside (outputLoop 3 3 config0) 1000000) !! 12%nat = Some (Event (Send _) _)) as Hn
    by (vm_compute; reflexivity).
  assert (snd (interp outside (outputLoop 3 3 config0) 1000000) = true) as Hb by by vm_compute.
  pose proof (runs_middle _ _ _ _ Hn) as Hr. rewrite Hb in Hr.
  eexists _, _, _, _. split; [exact Hr|]. exact (proj1 (outputs_guarded _ _ _ _ _ _ _ _ _ Hr eq_refl)).
Defined.

Lemma plans_are_solutions_witness :
  exists l1 p published l2,
    runs (planLoop 3 3 config0) (l1 ++ Event (PlansPublish p) published :: l2) true /\
    planned config0 l1 p /\ m_generation p = 1.
Proof.
  eassert (fst (interp outside (planLoop 3 3 config0) 1000000) !! 10%nat = Some (Event (PlansPublish _) _)) as Hn
    by (vm_compute; reflexivity).
  assert (snd (interp outside (planLoop 3 3 config0) 1000000) = true) as Hb by by vm_compute.
  pose proof (runs_middle _ _ _ _ Hn) as Hr. rewrite Hb in Hr.
  eexists _, _, _, _. split; [exact Hr|]. split; [|reflexivity].
  exact (plans_are_solutions _ _ _ _ _ _ _ _ _ Hr eq_refl).
Defined.

(** ** Stopping

    A worker ends only when the session is stopped, and then publishes its last
    counters. *)

(** *** The end of a worker *)

(** The worker learns that the session is stopped, or requests it. *)
Definition tells (ev : event mpc_call) : Prop :=
  match ev with
  | Event e r =>
      match e in mpc_call R return R -> Prop with
      | LoadReason => fun r => r <> None
      | ExchangeReason _ => fun _ => True
      | _ => fun _ => False
      end r
  end.
Definition stop_seen (h : list (event mpc_call)) : Prop := List.Exists tells h.

Lemma stop_seen_app h l : stop_seen h -> stop_seen (h ++ l).
Proof. intros H. apply List.Exists_app. by left. Qed.
Lemma stop_seen_snoc h ev : tells ev -> stop_seen (h ++ [ev]).
Proof. intros H. apply List.Exists_app. right. by left. Qed.

Definition any (h : list (event mpc_call)) (ev : event mpc_call) : Prop := True.

(** A worker that returns has seen the stop; otherwise [Q] holds. *)
Definition ends {S A} (Q : A -> list (event mpc_call) -> Prop) (h : list (event mpc_call))
    (out : S * (leaving + A)) : Prop :=
  match snd out with inl Returned => stop_seen h | inl _ => True | inr a => Q a h end.

Definition nothing {A} (a : A) (h : list (event mpc_call)) : Prop := True.
Definition stops (a : unit) (h : list (event mpc_call)) : Prop := stop_seen h.
Definition goes (b : bool) (h : list (event mpc_call)) : Prop := if b then True else stop_seen h.

Section ends.
Context {S : Type}.
Implicit Types (s : S).

Lemma ends_call {R A} h (e : mpc_call R) (f : R -> worker S A) s Q :
  (forall r, safe any (h ++ [Event e r]) (f r s) (ends Q)) -> safe any h ((act (call e) ≫= f) s) (ends Q).
Proof. intros Hf. apply safe_worker_call. intros r. split; [done|apply Hf]. Qed.

Lemma ends_fail {A} h r s (Q : A -> _) : safe any h (fail r s) (ends Q).
Proof.
  apply (safe_bind any h (out ← fault r; mret (s, inr out)) _ (fun h' out => stop_seen h' /\ out = (s, inr tt))).
  - apply (safe_bind any h (fault r) _ (fun h' _ => stop_seen h')).
    + intros won. split; [done|]. assert (stop_seen (h ++ [Event (ExchangeReason r) won])) as Hs by by apply stop_seen_snoc.
      destruct won; [|done]. intros []. split; [done|]. intros []. split; [done|]. cbn. by do 2 apply stop_seen_app.
    + by intros h' [] Hs.
  - by intros h' out (Hs & ->).
Qed.

Lemma ends_stopped {A} h (f : bool -> worker S A) s Q :
  (forall h', stop_seen h' -> safe any h' (f true s) (ends Q)) ->
  (forall h', safe any h' (f false s) (ends Q)) -> safe any h ((act stopped ≫= f) s) (ends Q).
Proof. intros Ht Hf. apply safe_stopped; [done| |apply Hf]. intros r. apply Ht. by apply stop_seen_snoc. Qed.

Lemma ends_bind {A B} h (p : worker S A) (f : A -> worker S B) s P Q :
  safe any h (p s) (ends P) -> (forall h' s' a, P a h' -> safe any h' (f a s') (ends Q)) ->
  safe any h ((p ≫= f) s) (ends Q).
Proof.
  intros Hp Hf. apply (safe_worker any h p f s (ends P)); [done| |done]. intros h' s' a. apply Hf.
Qed.

Lemma ends_waitUntil fuel t e h s : safe any h (waitUntil fuel t e s) (ends goes).
Proof.
  revert h. induction fuel as [|fuel IH]; intros h; [done|]. cbn [waitUntil]. apply ends_stopped.
  - intros h' Hs. by apply safe_stopped; [|intros r; apply stop_seen_app|].
  - intros h'. apply ends_call. intros now. destruct (now <? t); [apply ends_call; intros []; apply IH|].
    apply safe_stopped; [done| |done]. intros r. cbn. by apply stop_seen_snoc.
Qed.

Lemma ends_returned {A} h s (Q : A -> _) : stop_seen h -> safe any h (leave Returned s) (ends Q).
Proof. done. Qed.
End ends.

(** Through the straight parts of a worker. *)
Ltac walk :=
  repeat match goal with
  | |- safe _ _ ((act (call _) ≫= _) _) _ => apply ends_call; intros ?
  | |- safe _ _ ((gets _ ≫= _) _) _ => apply safe_gets
  | |- safe _ _ ((modify _ ≫= _) _) _ => apply safe_modify
  | |- safe _ _ ((act stopped ≫= _) _) _ =>
      apply ends_stopped; [intros ? ?; try by apply ends_returned|intros ?]
  | |- safe _ _ (fail _ _) _ => apply ends_fail
  | |- safe _ _ ((if ?b then _ else _) _) _ => destruct b
  | |- safe _ _ (match ?x with _ => _ end _) _ => destruct x
  | |- safe _ _ (leave _ _) _ => done
  | |- safe _ _ (mret _ _) _ => done
  | |- safe _ _ (modify _ _) _ => done
  end.

Lemma ends_pause {S} h fuel t e (s : S) :
  safe any h ((go ← waitUntil fuel t e; if go : bool then mret tt else leave Returned) s) (ends nothing).
Proof.
  apply (ends_bind _ _ _ _ goes); [apply ends_waitUntil|]. intros h' s' [] Hg; [done|by apply ends_returned].
Qed.

Lemma ends_plan_pass w c h s : safe any h (plan_pass w c s) (ends nothing).
Proof.
  unfold plan_pass, after_solve. walk.
  apply (ends_bind _ _ _ _ nothing); [unfold publish_plan; walk|]. intros h1 s1 _ _. walk. apply ends_pause.
Qed.

Lemma ends_plan_passes fuel w c h s : safe any h (plan_passes fuel w c s) (ends stops).
Proof.
  revert h s. induction fuel as [|fuel IH]; intros h s; [done|]. cbn [plan_passes]. apply ends_stopped; [done|].
  intros h'. apply (ends_bind _ _ _ _ nothing); [apply ends_plan_pass|]. intros h'' s' _ _. apply IH.
Qed.

Lemma ends_deadline c t h s : safe any h (check_deadline c t s) (ends nothing).
Proof. unfold check_deadline. walk. Qed.

Lemma ends_check_plan c m now checked h s : safe any h (check_plan c m now checked s) (ends nothing).
Proof. unfold check_plan, take_plan. walk. Qed.

Lemma ends_follow_plan c m now checked h s : safe any h (follow_plan c m now checked s) (ends nothing).
Proof.
  unfold follow_plan, send_reference. walk.
  apply (ends_bind _ _ _ _ nothing); [apply ends_deadline|]. intros h1 s1 _ _. walk.
Qed.

Lemma ends_output_pass w c h s : safe any h (output_pass w c s) (ends nothing).
Proof.
  unfold output_pass. walk.
  apply (ends_bind _ _ _ _ nothing); [apply ends_deadline|]. intros h1 s1 _ _. walk.
  apply (ends_bind _ _ _ _ nothing); [apply ends_check_plan|]. intros h2 s2 _ _.
  apply (ends_bind _ _ _ _ nothing); [apply ends_follow_plan|]. intros h3 s3 _ _.
  unfold end_period. walk.
  apply (ends_bind _ _ _ _ nothing); [apply ends_deadline|]. intros h4 s4 _ _. walk. apply ends_pause.
Qed.

Lemma ends_output_passes fuel w c h s : safe any h (output_passes fuel w c s) (ends stops).
Proof.
  revert h s. induction fuel as [|fuel IH]; intros h s; [done|]. cbn [output_passes]. apply ends_stopped; [done|].
  intros h'. apply (ends_bind _ _ _ _ nothing); [apply ends_output_pass|]. intros h'' s' _ _. apply IH.
Qed.

Lemma ends_output_body fuel w c h s : safe any h (output_body fuel w c s) (ends stops).
Proof. unfold output_body. walk. apply ends_output_passes. Qed.

(** The last publication, and what follows when it fails. *)
Definition last_words (publish : MPCControlStatus -> mpc_call bool) (l : list (event mpc_call)) : Prop :=
  exists l1 st published l2, l = l1 ++ Event (publish st) published :: l2 /\
  stop_seen l1 /\ runs (if published then mret tt else fault kInternalError) l2 tt.

Lemma finish_last_words {S} publish (get : S -> MPCControlStatus) h out l ended :
  ends stops h out -> runs (finish (fun s => publish (get s)) out) l ended -> ended = true ->
  last_words publish (h ++ l).
Proof.
  intros He Hr ->. assert (forall h', stop_seen h' -> forall l', runs (published ← call (publish (get out.1));
    _ ← (if published : bool then mret tt else fault kInternalError); mret true) l' true ->
    last_words publish (h' ++ l')) as Ht.
  { intros h' Hs l' H. step_call H published. apply runs_bind in H as (l1 & l2 & [] & -> & H1 & H2).
    apply runs_ret in H2 as [-> _]. rewrite app_nil_r. by exists h', (get out.1), published, l1. }
  destruct out as [s [[]|[]]]; unfold finish in Hr; cbn [fst snd] in Hr, He, Ht.
  - by apply Ht.
  - apply runs_bind in Hr as (l1 & l2 & [] & -> & H1 & H2). rewrite app_assoc. apply Ht; [|done].
    apply List.Exists_app. right. step_call H1 won. by left.
  - by apply runs_ret in Hr as [_ [=]].
  - by apply Ht.
Qed.

Lemma loop_last_words {S} publish (get : S -> MPCControlStatus) (p : mpc (S * (leaving + unit))) l h0 :
  safe any h0 p (ends stops) -> runs (p ≫= finish (fun s => publish (get s))) l true ->
  last_words publish (h0 ++ l).
Proof.
  intros Hs Hr. apply runs_bind in Hr as (l1 & l2 & out & -> & H1 & H2).
  destruct (safe_runs _ _ _ _ _ _ Hs H1) as [_ He]. rewrite app_assoc.
  by apply (finish_last_words publish get _ out l2 true).
Qed.

(** Both workers. *)
Lemma worker_last_words fuel w c l :
  (runs (planLoop fuel w c) l true -> last_words PlannerStatusPublish l) /\
  (runs (outputLoop fuel w c) l true -> last_words OutputStatusPublish l).
Proof.
  split; intros Hr.
  - unfold planLoop in Hr. step_call Hr u. step_call Hr now.
    change (last_words PlannerStatusPublish ([Event PlanAcquire u; Event Now now] ++ l)).
    eapply loop_last_words; [apply ends_plan_passes|exact Hr].
  - change l with ([] ++ l). eapply loop_last_words; [apply ends_output_body|exact Hr].
Qed.
