(* ===== verification/MPCThreads.v ===== *)
(** * The position controller: its threads

    A session as a system of threads: the planner, the output worker, and any
    number of callers, over the atomics, the semaphores and the mutexes.  A step
    lets one thread make its next call, whatever its program is; calls to the
    outside may be answered in any way.  For the proofs, each thread of a session
    is then shown to keep a promise about the shared objects (which mutex it holds,
    which tokens it has yet to release), and the invariants speak of the promises.
    The workers' loops have fuel ([MPCSession.v]); one that has used it up makes no
    more calls and counts as ended, and the theorems hold for any amount. *)

From S2P Require Import Prelude DeviceTypes Commands Prog Arith MPCTrajectory MPCSession MPCSafety.

(** ** The shared objects *)

Record memory := {
  me_reason : reason; me_started : bool;
  me_write_locked : bool; me_join_locked : bool;
  me_plan_tokens : Z; me_output_tokens : Z;          (* the counters of the semaphores *)
  me_plan_taken : Z; me_output_taken : Z;            (* ghost: tokens acquired so far *)
  me_planner_joinable : bool; me_output_joinable : bool
}.
Definition memory0 : memory := {|
  me_reason := None; me_started := false; me_write_locked := false; me_join_locked := false;
  me_plan_tokens := 0; me_output_tokens := 0; me_plan_taken := 0; me_output_taken := 0;
  me_planner_joinable := true; me_output_joinable := true |}.

Definition me_stop (r : reason) (started : bool) (m : memory) : memory := {|
  me_reason := r; me_started := started; me_write_locked := me_write_locked m;
  me_join_locked := me_join_locked m; me_plan_tokens := me_plan_tokens m;
  me_output_tokens := me_output_tokens m; me_plan_taken := me_plan_taken m;
  me_output_taken := me_output_taken m; me_planner_joinable := me_planner_joinable m;
  me_output_joinable := me_output_joinable m |}.
Definition me_lock (write join : bool) (m : memory) : memory := {|
  me_reason := me_reason m; me_started := me_started m; me_write_locked := write;
  me_join_locked := join; me_plan_tokens := me_plan_tokens m;
  me_output_tokens := me_output_tokens m; me_plan_taken := me_plan_taken m;
  me_output_taken := me_output_taken m; me_planner_joinable := me_planner_joinable m;
  me_output_joinable := me_output_joinable m |}.
Definition me_tokens (plan output plan_taken output_taken : Z) (m : memory) : memory := {|
  me_reason := me_reason m; me_started := me_started m; me_write_locked := me_write_locked m;
  me_join_locked := me_join_locked m; me_plan_tokens := plan;
  me_output_tokens := output; me_plan_taken := plan_taken;
  me_output_taken := output_taken; me_planner_joinable := me_planner_joinable m;
  me_output_joinable := me_output_joinable m |}.
Definition me_joinable (planner output : bool) (m : memory) : memory := {|
  me_reason := me_reason m; me_started := me_started m; me_write_locked := me_write_locked m;
  me_join_locked := me_join_locked m; me_plan_tokens := me_plan_tokens m;
  me_output_tokens := me_output_tokens m; me_plan_taken := me_plan_taken m;
  me_output_taken := me_output_taken m; me_planner_joinable := planner;
  me_output_joinable := output |}.

Definition plan_released (m : memory) : memory :=
  me_tokens (me_plan_tokens m + 1) (me_output_tokens m) (me_plan_taken m) (me_output_taken m) m.
Definition output_released (m : memory) : memory :=
  me_tokens (me_plan_tokens m) (me_output_tokens m + 1) (me_plan_taken m) (me_output_taken m) m.
Definition plan_acquired (m : memory) : memory :=
  me_tokens (me_plan_tokens m - 1) (me_output_tokens m) (me_plan_taken m + 1) (me_output_taken m) m.
Definition output_acquired (m : memory) : memory :=
  me_tokens (me_plan_tokens m) (me_output_tokens m - 1) (me_plan_taken m) (me_output_taken m + 1) m.

(** A call with its answer, the memory before and after, and whether the two
    workers have ended. *)
Definition mem_call (planner_ended output_ended : bool) (ev : event mpc_call) (m m' : memory) : Prop :=
  match ev with
  | Event e r =>
      match e in mpc_call R return R -> Prop with
      | LoadReason => fun r => r = me_reason m /\ m' = m
      | ExchangeReason x => fun won =>
          if won : bool then me_reason m = None /\ m' = me_stop (Some x) (me_started m) m
          else me_reason m <> None /\ m' = m
      | LoadStarted => fun r => r = me_started m /\ m' = m
      | StoreStarted => fun _ => m' = me_stop (me_reason m) true m
      | PlanRelease => fun _ => m' = plan_released m
      | OutputRelease => fun _ => m' = output_released m
      | PlanAcquire => fun _ => 0 < me_plan_tokens m /\ m' = plan_acquired m
      | OutputAcquire => fun _ => 0 < me_output_tokens m /\ m' = output_acquired m
      | PlanAcquireUntil _ => fun _ => m' = m \/ (0 < me_plan_tokens m /\ m' = plan_acquired m)
      | OutputAcquireUntil _ => fun _ => m' = m \/ (0 < me_output_tokens m /\ m' = output_acquired m)
      | WriteLock => fun _ => me_write_locked m = false /\ m' = me_lock true (me_join_locked m) m
      | WriteUnlock => fun _ => m' = me_lock false (me_join_locked m) m
      | JoinLock => fun _ => me_join_locked m = false /\ m' = me_lock (me_write_locked m) true m
      | JoinUnlock => fun _ => m' = me_lock (me_write_locked m) false m
      | OutputJoinable => fun r => r = me_output_joinable m /\ m' = m
      | PlannerJoinable => fun r => r = me_planner_joinable m /\ m' = m
      | JoinOutput => fun _ => output_ended = true /\ m' = me_joinable (me_planner_joinable m) false m
      | JoinPlanner => fun _ => planner_ended = true /\ m' = me_joinable false (me_output_joinable m) m
      | _ => fun _ => m' = m
      end r
  end.

(** ** The callers *)

Inductive api :=
| ApiWrite (t : CartesianPose) (motion_finished : bool)
| ApiStop (r : reason)
| ApiStatus (planner output : MPCControlStatus).

Definition api_call (a : api) : mpc unit :=
  match a with
  | ApiWrite t f => _ ← write t f; mret tt
  | ApiStop r => stop r
  | ApiStatus planner output => _ ← status planner output; mret tt
  end.

(** A caller's thread: some calls of the interface, one after the other. *)
Fixpoint caller (l : list api) : mpc bool :=
  match l with
  | [] => mret true
  | a :: l' => _ ← api_call a; caller l'
  end.

(** ** Systems *)

(** The memory, and what is left of the program of each thread. *)
Record system := { sy_memory : memory; sy_threads : list (mpc bool) }.
Definition ended (t : option (mpc bool)) : bool := match t with Some (Ret _) => true | _ => false end.

(** The planner is thread 0, the output worker thread 1; the others are callers. *)
Definition session (fuel wait_fuel : nat) (c : MPCControlConfig) (calls : list (list api)) : system := {|
  sy_memory := memory0;
  sy_threads := planLoop fuel wait_fuel c :: outputLoop fuel wait_fuel c :: map caller calls |}.

Inductive sys_step : system -> nat * event mpc_call -> system -> Prop :=
| sys_call m ts i R (e : mpc_call R) (k : R -> mpc bool) r m' :
    ts !! i = Some (Call e k) ->
    mem_call (ended (ts !! 0%nat)) (ended (ts !! 1%nat)) (Event e r) m m' ->
    sys_step {| sy_memory := m; sy_threads := ts |} (i, Event e r)
      {| sy_memory := m'; sy_threads := <[i := k r]> ts |}.

Inductive exec (s : system) : list (nat * event mpc_call) -> system -> Prop :=
| exec_nil : exec s [] s
| exec_snoc tr s1 l s2 : exec s tr s1 -> sys_step s1 l s2 -> exec s (tr ++ [l]) s2.

Lemma sys_step_inv s l s' :
  sys_step s l s' ->
  exists i R (e : mpc_call R) k r m',
    l = (i, Event e r) /\ sy_threads s !! i = Some (Call e k) /\
    mem_call (ended (sy_threads s !! 0%nat)) (ended (sy_threads s !! 1%nat)) (Event e r) (sy_memory s) m' /\
    s' = {| sy_memory := m'; sy_threads := <[i := k r]> (sy_threads s) |}.
Proof. destruct 1 as [m ts i R e k r m' Hi Hm]. by exists i, R, e, k, r, m'. Qed.

(** ** What a program promises *)

Inductive role := Planner | Output | Caller.
#[global] Instance role_eq_dec : EqDecision role.
Proof. solve_decision. Defined.

Record promise := {
  pr_role : role;
  pr_waiting : bool;      (* a worker that has not acquired its first token *)
  pr_writing : bool;      (* holds the write mutex *)
  pr_first : bool;        (* under it, saw that the session is not started *)
  pr_joining : bool;      (* holds the join mutex *)
  pr_joined_output : bool; pr_joined_planner : bool;  (* under it, knows that the worker has ended *)
  pr_owes_plan : nat; pr_owes_output : nat  (* the tokens to release *)
}.
Definition promise_of (r : role) (waiting : bool) : promise := {|
  pr_role := r; pr_waiting := waiting; pr_writing := false; pr_first := false; pr_joining := false;
  pr_joined_output := false; pr_joined_planner := false; pr_owes_plan := 0; pr_owes_output := 0 |}.

(** Between two calls that may block, a program owes nothing. *)
Definition settled (p : promise) : Prop := pr_owes_plan p = 0%nat /\ pr_owes_output p = 0%nat.
Definition unlocked (p : promise) : Prop := pr_writing p = false /\ pr_joining p = false.

Definition pr_lock (writing first joining : bool) (p : promise) : promise := {|
  pr_role := pr_role p; pr_waiting := pr_waiting p; pr_writing := writing; pr_first := first;
  pr_joining := joining; pr_joined_output := false; pr_joined_planner := false;
  pr_owes_plan := pr_owes_plan p; pr_owes_output := pr_owes_output p |}.
Definition pr_join (output planner : bool) (p : promise) : promise := {|
  pr_role := pr_role p; pr_waiting := pr_waiting p; pr_writing := pr_writing p; pr_first := pr_first p;
  pr_joining := pr_joining p; pr_joined_output := output; pr_joined_planner := planner;
  pr_owes_plan := pr_owes_plan p; pr_owes_output := pr_owes_output p |}.
Definition pr_owe (plan output : nat) (p : promise) : promise := {|
  pr_role := pr_role p; pr_waiting := pr_waiting p; pr_writing := pr_writing p; pr_first := pr_first p;
  pr_joining := pr_joining p; pr_joined_output := pr_joined_output p; pr_joined_planner := pr_joined_planner p;
  pr_owes_plan := plan; pr_owes_output := output |}.
Definition pr_first_seen (first : bool) (p : promise) : promise := {|
  pr_role := pr_role p; pr_waiting := pr_waiting p; pr_writing := pr_writing p; pr_first := first;
  pr_joining := pr_joining p; pr_joined_output := pr_joined_output p; pr_joined_planner := pr_joined_planner p;
  pr_owes_plan := pr_owes_plan p; pr_owes_output := pr_owes_output p |}.
Definition pr_wait (waiting : bool) (p : promise) : promise := {|
  pr_role := pr_role p; pr_waiting := waiting; pr_writing := pr_writing p; pr_first := pr_first p;
  pr_joining := pr_joining p; pr_joined_output := pr_joined_output p; pr_joined_planner := pr_joined_planner p;
  pr_owes_plan := pr_owes_plan p; pr_owes_output := pr_owes_output p |}.

Definition next_promise (ev : event mpc_call) (p p' : promise) : Prop :=
  match ev with
  | Event e r =>
      match e in mpc_call R return R -> Prop with
      | ExchangeReason _ => fun won =>
          p' = if won : bool then pr_owe (S (pr_owes_plan p)) (S (pr_owes_output p)) p else p
      | LoadStarted => fun started => p' = pr_first_seen (pr_writing p && negb started) p
      | StoreStarted => fun _ => pr_first p = true /\
          p' = pr_owe (S (pr_owes_plan p)) (S (pr_owes_output p)) (pr_first_seen false p)
      | PlanRelease => fun _ => exists n, pr_owes_plan p = S n /\ p' = pr_owe n (pr_owes_output p) p
      | OutputRelease => fun _ => exists n, pr_owes_output p = S n /\ p' = pr_owe (pr_owes_plan p) n p
      | PlanAcquire => fun _ =>
          pr_role p = Planner /\ pr_waiting p = true /\ settled p /\ p' = pr_wait false p
      | OutputAcquire => fun _ =>
          pr_role p = Output /\ pr_waiting p = true /\ settled p /\ p' = pr_wait false p
      | PlanAcquireUntil _ => fun _ => pr_role p = Planner /\ pr_waiting p = false /\ p' = p
      | OutputAcquireUntil _ => fun _ => pr_role p = Output /\ pr_waiting p = false /\ p' = p
      | WriteLock => fun _ => pr_role p = Caller /\ unlocked p /\ settled p /\ p' = pr_lock true false false p
      | WriteUnlock => fun _ => pr_writing p = true /\ pr_joining p = false /\ pr_first p = false /\
          p' = pr_lock false false false p
      | JoinLock => fun _ => pr_role p = Caller /\ unlocked p /\ settled p /\ p' = pr_lock false (pr_first p) true p
      | JoinUnlock => fun _ => pr_joining p = true /\ pr_writing p = false /\
          pr_joined_output p = true /\ pr_joined_planner p = true /\ p' = pr_lock false (pr_first p) false p
      | OutputJoinable => fun joinable =>
          pr_joining p = true /\ p' = pr_join (negb joinable) (pr_joined_planner p) p
      | PlannerJoinable => fun joinable =>
          pr_joining p = true /\ p' = pr_join (pr_joined_output p) (negb joinable) p
      | JoinOutput => fun _ =>
          pr_role p = Caller /\ pr_joining p = true /\ settled p /\ p' = pr_join true (pr_joined_planner p) p
      | JoinPlanner => fun _ =>
          pr_role p = Caller /\ pr_joining p = true /\ settled p /\ p' = pr_join (pr_joined_output p) true p
      | Send _ => fun _ => pr_role p = Output /\ p' = p
      | _ => fun _ => p' = p
      end r
  end.

(** A program keeps its promise, and leaves nothing open when it ends. *)
Fixpoint keeps {A} (p : promise) (prg : mpc A) (post : promise -> Prop) : Prop :=
  match prg with
  | Ret _ => post p
  | Call e k => forall r, exists p', next_promise (Event e r) p p' /\ keeps p' (k r) post
  end.

Definition done_with (p : promise) : Prop := unlocked p /\ settled p.

Lemma keeps_bind {A B} p (prg : mpc A) (f : A -> mpc B) mid post :
  keeps p prg mid -> (forall a p', mid p' -> keeps p' (f a) post) -> keeps p (prg ≫= f) post.
Proof.
  revert p. induction prg as [a|R e k IH]; intros p Hp Hf; [by apply Hf|]. intros r.
  destruct (Hp r) as (p' & Hn & Hk). exists p'. split; [done|]. by apply IH.
Qed.

Lemma keeps_call {R A} p (e : mpc_call R) (f : R -> mpc A) post :
  (forall r, exists p', next_promise (Event e r) p p' /\ keeps p' (f r) post) -> keeps p (call e ≫= f) post.
Proof. done. Qed.

Lemma keeps_mono {A} p (prg : mpc A) (post post' : promise -> Prop) :
  keeps p prg post -> (forall p', post p' -> post' p') -> keeps p prg post'.
Proof.
  revert p. induction prg as [a|R e k IH]; intros p Hp Hi; [by apply Hi|]. intros r.
  destruct (Hp r) as (p' & Hn & Hk). exists p'. split; [done|]. by apply (IH r).
Qed.

(** *** The workers

    A worker that is running returns to its promise. *)
Definition calm (r : promise -> Prop) {A} (prg : mpc A) : Prop :=
  forall p, r p -> keeps p prg (fun p' => p' = p).
Definition working (r : role) (p : promise) : Prop := pr_role p = r /\ pr_waiting p = false.
Definition wcalm (r : promise -> Prop) {S A} (w : worker S A) : Prop := forall s, calm r (w s).

Lemma calm_ret r {A} (a : A) : calm r (mret a).
Proof. done. Qed.
Lemma calm_bind r {A B} (prg : mpc A) (f : A -> mpc B) :
  calm r prg -> (forall a, calm r (f a)) -> calm r (prg ≫= f).
Proof.
  intros Hp Hf p Hr. eapply keeps_bind; [by apply Hp|]. intros a p' ->. by apply Hf.
Qed.
Lemma calm_call r {R} (e : mpc_call R) :
  (forall x p, r p -> next_promise (Event e x) p p) -> calm r (call e).
Proof. intros He p Hr x. exists p. split; [by apply He|done]. Qed.

Lemma calm_fault r x : calm r (fault x).
Proof.
  intros p Hr won. eexists. split; [done|]. destruct won; [|done].
  intros []. eexists. split; [by eexists|]. intros []. eexists. split; [by eexists|]. by destruct p.
Qed.
Lemma calm_stopped r : calm r stopped.
Proof. apply calm_bind; [by apply calm_call|done]. Qed.

Section wcalm.
Context {S : Type} (r : promise -> Prop).
Lemma wcalm_ret {A} (a : A) : wcalm r (mret a : worker S A).
Proof. done. Qed.
Lemma wcalm_leave {A} e : wcalm r (leave e : worker S A).
Proof. done. Qed.
Lemma wcalm_gets {A} (f : S -> A) : wcalm r (gets f).
Proof. done. Qed.
Lemma wcalm_modify (f : S -> S) : wcalm r (modify f).
Proof. done. Qed.
Lemma wcalm_act {A} (prg : mpc A) : calm r prg -> wcalm r (act prg : worker S A).
Proof. intros Hp s. by apply calm_bind. Qed.
Lemma wcalm_bind {A B} (w : worker S A) (f : A -> worker S B) :
  wcalm r w -> (forall a, wcalm r (f a)) -> wcalm r (w ≫= f).
Proof. intros Hw Hf s. apply calm_bind; [done|]. intros [s' [e|a]]; [done|apply Hf]. Qed.
Lemma wcalm_fail {A} x : wcalm r (fail x : worker S A).
Proof. apply wcalm_bind; [apply wcalm_act, calm_fault|done]. Qed.
End wcalm.

Ltac solve_calm :=
  repeat match goal with
  | |- wcalm _ (mret _) => apply wcalm_ret
  | |- wcalm _ (leave _) => apply wcalm_leave
  | |- wcalm _ (gets _) => apply wcalm_gets
  | |- wcalm _ (modify _) => apply wcalm_modify
  | |- wcalm _ (fail _) => apply wcalm_fail
  | |- wcalm _ (act stopped) => apply wcalm_act, calm_stopped
  | |- wcalm _ (act (call _)) => let H := fresh in apply wcalm_act, calm_call; intros ? ? H; first [done | by destruct H]
  | |- wcalm _ (_ ≫= _) => apply wcalm_bind; [|intros ?]
  | |- wcalm _ (if ?b then _ else _) => destruct b
  | |- wcalm _ (match ?x with _ => _ end) => destruct x
  | |- wcalm _ _ => solve [auto with calm nocore]
  end.

Create HintDb calm.

Lemma wcalm_wait {S} r fuel t e :
  (forall x p, r p -> next_promise (Event e x) p p) ->
  wcalm r (waitUntil fuel t e : worker S bool).
Proof.
  intros He. induction fuel as [|fuel IH]; [done|]. cbn [waitUntil].
  apply wcalm_bind; [solve_calm|]. intros []; [solve_calm|]. apply wcalm_bind; [solve_calm|]. intros now.
  destruct (now <? t); [|solve_calm]. apply wcalm_bind; [by apply wcalm_act, calm_call|]. done.
Qed.
Lemma wcalm_plan_wait {S} fuel t : wcalm (working Planner) (waitUntil fuel t (PlanAcquireUntil t) : worker S bool).
Proof. apply wcalm_wait. by intros [] p []. Qed.
Lemma wcalm_output_wait {S} fuel t : wcalm (working Output) (waitUntil fuel t (OutputAcquireUntil t) : worker S bool).
Proof. apply wcalm_wait. by intros [] p []. Qed.
#[export] Hint Resolve wcalm_plan_wait wcalm_output_wait : calm.

Lemma wcalm_plan_passes fuel w c : wcalm (working Planner) (plan_passes fuel w c).
Proof.
  induction fuel as [|fuel IH]; [done|]. cbn [plan_passes]. unfold plan_pass, after_solve, publish_plan. solve_calm.
Qed.
Lemma wcalm_deadline c t : wcalm (working Output) (check_deadline c t).
Proof. unfold check_deadline. solve_calm. Qed.
#[export] Hint Resolve wcalm_deadline : calm.
Lemma wcalm_check_plan c m now checked : wcalm (working Output) (check_plan c m now checked).
Proof. unfold check_plan, take_plan. solve_calm. Qed.
Lemma wcalm_follow_plan c m now checked : wcalm (working Output) (follow_plan c m now checked).
Proof. unfold follow_plan, send_reference. solve_calm. Qed.
Lemma wcalm_end_period w c : wcalm (working Output) (end_period w c).
Proof. unfold end_period. solve_calm. Qed.
#[export] Hint Resolve wcalm_check_plan wcalm_follow_plan wcalm_end_period : calm.
Lemma wcalm_output_passes fuel w c : wcalm (working Output) (output_passes fuel w c).
Proof. induction fuel as [|fuel IH]; [done|]. cbn [output_passes]. unfold output_pass. solve_calm. Qed.

Lemma calm_finish r {S} publish (out : S * (leaving + unit)) :
  (forall s x p, r p -> next_promise (Event (publish s) x) p p) ->
  calm r (finish publish out).
Proof.
  intros Hp. assert (forall s, calm r (published ← call (publish s);
    _ ← (if published : bool then mret tt else fault kInternalError); mret true)) as Ht.
  { intros s. apply calm_bind; [apply calm_call, Hp|]. intros [|]; apply calm_bind; try done. apply calm_fault. }
  destruct out as [s [[]|[]]]; unfold finish; cbn [fst snd]; [exact (Ht s)| |done|exact (Ht s)].
  apply calm_bind; [apply calm_fault|]. intros []. apply (Ht s).
Qed.

Lemma planLoop_keeps fuel w c : keeps (promise_of Planner true) (planLoop fuel w c) done_with.
Proof.
  intros []. eexists. split; [done|]. intros now. eexists. split; [done|].
  eapply keeps_mono.
  - apply (calm_bind (working Planner) (plan_passes fuel w c _)); [apply wcalm_plan_passes| |done].
    intros out. by apply calm_finish.
  - by intros p' ->.
Qed.

Lemma outputLoop_keeps fuel w c : keeps (promise_of Output true) (outputLoop fuel w c) done_with.
Proof.
  apply (keeps_bind _ _ _ done_with).
  - intros valid. eexists. split; [done|]. destruct valid; cbn [negb].
    + intros []. eexists. split; [done|]. eapply keeps_mono.
      * assert (wcalm (working Output) (is_stopped ← act stopped;
          if is_stopped : bool then leave Returned
          else now ← act (call Now); _ ← modify (fun _ => executor0 now); output_passes fuel w c)) as Hc.
        { pose proof (wcalm_output_passes fuel w c). solve_calm. }
        apply Hc. done.
      * by intros p' ->.
    + eapply keeps_mono; [by apply (wcalm_fail (fun _ => True))|]. by intros p' ->.
  - intros out p Hp. eapply keeps_mono; [by apply (calm_finish (fun _ => True))|]. by intros p' ->.
Qed.

(** *** The callers' programs *)

Definition idle : promise := promise_of Caller false.

Lemma requestStop_keeps p x : keeps p (requestStop x) (fun p' => p' = p).
Proof. by apply (calm_fault (fun _ => True)). Qed.

Lemma stop_keeps r : keeps idle (stop r) (fun p' => p' = idle).
Proof.
  eapply keeps_bind; [apply requestStop_keeps|]. intros [] p ->.
  intros []. eexists. split; [done|]. intros output. eexists. split; [done|].
  eapply (keeps_bind _ _ _ (fun p => p = pr_join true false (pr_lock false false true idle))).
  { destruct output; [|done]. intros []. eexists. by split; [|done]. }
  intros [] p ->. intros planner. eexists. split; [done|].
  eapply (keeps_bind _ _ _ (fun p => p = pr_join true true (pr_lock false false true idle))).
  { destruct planner; [|done]. intros []. eexists. by split; [|done]. }
  intros [] p ->. intros []. eexists. split; [done|]. done.
Qed.

Lemma write_locked_keeps t : keeps (pr_lock true false false idle) (write_locked t)
  (fun p' => p' = pr_lock true false false idle).
Proof.
  intros r. eexists. split; [done|]. destruct r as [r|]; cbn.
  { intros r'. by eexists. }
  intros published. eexists. split; [done|]. destruct published; cbn [negb].
  - intros now. eexists. split; [done|]. intros []. eexists. split; [done|]. intros started. eexists. split; [done|].
    destruct started; [done|]. intros []. eexists. split; [done|]. intros []. eexists. split; [done|].
    intros []. eexists. split; [by eexists|]. intros []. eexists. split; [by eexists|]. done.
  - apply (keeps_bind _ (fault kInternalError) (fun _ => mret (Some CannotPublish)) _ _ (requestStop_keeps _ _)).
    by intros [] p ->.
Qed.

Lemma status_calm planner output : calm (eq idle) (status planner output).
Proof.
  apply calm_bind; [by apply calm_call|]. intros rp. apply calm_bind; [by apply calm_call|]. intros ro.
  destruct (unreadable (fst rp) || unreadable (fst ro)); [done|].
  apply calm_bind; [by apply calm_call|]. intros r. apply calm_bind; [|done].
  destruct (negb _ && _); [|done]. apply calm_call. by intros x p <-.
Qed.

Lemma api_keeps a : keeps idle (api_call a) (fun p' => p' = idle).
Proof.
  destruct a as [t finished|r|planner output].
  - eapply (keeps_bind _ _ _ (fun p => p = idle)); [|done]. unfold write. destruct finished.
    { eapply keeps_bind; [apply stop_keeps|]. done. }
    destruct (forallb _ _); [|done]. destruct (homogeneous t); [|done].
    intros []. eexists. split; [done|]. eapply keeps_bind; [apply write_locked_keeps|].
    intros result p ->. intros []. eexists. split; [done|]. done.
  - apply stop_keeps.
  - eapply keeps_bind; [by apply status_calm|]. by intros [[]] p ->.
Qed.

Lemma caller_keeps l : keeps idle (caller l) done_with.
Proof.
  induction l as [|a l IH]; [done|]. eapply keeps_bind; [apply api_keeps|]. by intros [] p ->.
Qed.

(** ** Threads with their promises *)

Record thread := { th_promise : promise; th_left : mpc bool }.
Record promised := { pd_memory : memory; pd_threads : list thread }.
Definition erase (s : promised) : system :=
  {| sy_memory := pd_memory s; sy_threads := map th_left (pd_threads s) |}.
Definition th_ended (t : option thread) : bool := match t with Some {| th_left := Ret _ |} => true | _ => false end.

Lemma th_ended_left ts i : ended (map th_left ts !! i) = th_ended (ts !! i).
Proof. rewrite list_lookup_fmap. by destruct (ts !! i) as [[p []]|]. Qed.

Definition promised_session (fuel wait_fuel : nat) (c : MPCControlConfig) (calls : list (list api)) : promised := {|
  pd_memory := memory0;
  pd_threads :=
    {| th_promise := promise_of Planner true; th_left := planLoop fuel wait_fuel c |} ::
    {| th_promise := promise_of Output true; th_left := outputLoop fuel wait_fuel c |} ::
    map (fun l => {| th_promise := idle; th_left := caller l |}) calls |}.

Lemma session_promised fuel w c calls : erase (promised_session fuel w c calls) = session fuel w c calls.
Proof.
  unfold erase, session. f_equal. cbn. do 2 f_equal. induction calls as [|l calls IH]; [done|]. cbn. by rewrite IH.
Qed.

(** *** Sums over the threads *)
Fixpoint total (f : promise -> nat) (ts : list thread) : nat :=
  match ts with [] => 0 | t :: ts' => f (th_promise t) + total f ts' end.

Lemma total_insert f ts i t t' :
  ts !! i = Some t ->
  (total f (<[i:=t']> ts) + f (th_promise t) = total f ts + f (th_promise t'))%nat.
Proof.
  revert i. induction ts as [|u ts IH]; intros [|i]; try done.
  - intros [= ->]. cbn. lia.
  - intros Hi. change (<[S i:=t']> (u :: ts)) with (u :: <[i:=t']> ts). cbn [total]. specialize (IH i Hi). lia.
Qed.

Lemma total_lookup f ts i t : ts !! i = Some t -> (f (th_promise t) <= total f ts)%nat.
Proof.
  revert i. induction ts as [|u ts IH]; intros [|i]; try done; cbn [total].
  - intros [= ->]. lia.
  - intros Hi. specialize (IH i Hi). lia.
Qed.

Lemma total_two f ts i j t u :
  ts !! i = Some t -> ts !! j = Some u -> i <> j -> (f (th_promise t) + f (th_promise u) <= total f ts)%nat.
Proof.
  revert i j. induction ts as [|v ts IH]; intros [|i] [|j]; try done; cbn [total].
  - intros [= ->] Hj _. pose proof (total_lookup f ts j u Hj). lia.
  - intros Hi [= ->] _. pose proof (total_lookup f ts i t Hi). lia.
  - intros Hi Hj Hne. specialize (IH i j Hi Hj). lia.
Qed.

Lemma total_zero f ts : (forall i t, ts !! i = Some t -> f (th_promise t) = 0%nat) -> total f ts = 0%nat.
Proof.
  induction ts as [|t ts IH]; intros Hf; [done|]. cbn. rewrite (Hf 0%nat t) by done. apply IH. intros i. apply (Hf (S i)).
Qed.

Definition one (b : bool) : nat := if b then 1 else 0.
Definition writing (p : promise) : nat := one (pr_writing p).
Definition joining (p : promise) : nat := one (pr_joining p).

(** ** The invariant *)

Record sound (s : promised) : Prop := {
  so_keeps : forall i t, pd_threads s !! i = Some t -> keeps (th_promise t) (th_left t) done_with;
  so_role : forall i t, pd_threads s !! i = Some t ->
    pr_role (th_promise t) = match i with 0 => Planner | 1 => Output | _ => Caller end%nat;
  so_waiting : forall i t, pd_threads s !! i = Some t -> pr_waiting (th_promise t) = true ->
    match pr_role (th_promise t) with
    | Planner => me_plan_taken (pd_memory s) = 0
    | Output => me_output_taken (pd_memory s) = 0
    | Caller => False
    end;
  so_writing : total writing (pd_threads s) = one (me_write_locked (pd_memory s));
  so_joining : total joining (pd_threads s) = one (me_join_locked (pd_memory s));
  so_first : forall i t, pd_threads s !! i = Some t -> pr_first (th_promise t) = true ->
    pr_writing (th_promise t) = true /\ me_started (pd_memory s) = false;
  so_plan : me_plan_tokens (pd_memory s) + me_plan_taken (pd_memory s) +
      Z.of_nat (total pr_owes_plan (pd_threads s)) =
    Z.of_nat (one (bool_decide (me_reason (pd_memory s) <> None)) + one (me_started (pd_memory s)));
  so_output : me_output_tokens (pd_memory s) + me_output_taken (pd_memory s) +
      Z.of_nat (total pr_owes_output (pd_threads s)) =
    Z.of_nat (one (bool_decide (me_reason (pd_memory s) <> None)) + one (me_started (pd_memory s)));
  so_tokens : 0 <= me_plan_tokens (pd_memory s) /\ 0 <= me_plan_taken (pd_memory s) /\
    0 <= me_output_tokens (pd_memory s) /\ 0 <= me_output_taken (pd_memory s);
  so_ended : forall i t, pd_threads s !! i = Some t ->
    (pr_joined_output (th_promise t) = true -> th_ended (pd_threads s !! 1%nat) = true) /\
    (pr_joined_planner (th_promise t) = true -> th_ended (pd_threads s !! 0%nat) = true);
  so_joined : (me_output_joinable (pd_memory s) = false -> th_ended (pd_threads s !! 1%nat) = true) /\
    (me_planner_joinable (pd_memory s) = false -> th_ended (pd_threads s !! 0%nat) = true)
}.

Lemma promised_sound fuel w c calls : sound (promised_session fuel w c calls).
Proof.
  assert (forall i t, pd_threads (promised_session fuel w c calls) !! i = Some t ->
    keeps (th_promise t) (th_left t) done_with /\
    (i = 0%nat /\ th_promise t = promise_of Planner true \/ i = 1%nat /\ th_promise t = promise_of Output true \/
     exists j, i = S (S j) /\ th_promise t = idle)) as Ht.
  { intros [|[|i]] t Hi; cbn in Hi.
    - injection Hi as <-. split; [apply planLoop_keeps|]. tauto.
    - injection Hi as <-. split; [apply outputLoop_keeps|]. tauto.
    - apply list_lookup_fmap_Some in Hi as (l & -> & _). split; [apply caller_keeps|]. right. right. by exists i. }
  assert (forall f, (forall r w, f (promise_of r w) = 0%nat) -> total f (pd_threads (promised_session fuel w c calls)) = 0%nat) as Hz.
  { intros f Hf. apply total_zero. intros i t Hi. destruct (Ht i t Hi) as [_ [[_ ->]|[[_ ->]|(j & _ & ->)]]]; apply Hf. }
  split; try by rewrite Hz.
  - intros i t Hi. by destruct (Ht i t Hi).
  - intros i t Hi. by destruct (Ht i t Hi) as [_ [[-> ->]|[[-> ->]|(j & -> & ->)]]].
  - intros i t Hi. by destruct (Ht i t Hi) as [_ [[-> ->]|[[-> ->]|(j & -> & ->)]]].
  - intros i t Hi. by destruct (Ht i t Hi) as [_ [[-> ->]|[[-> ->]|(j & -> & ->)]]].
  - done.
  - intros i t Hi. by destruct (Ht i t Hi) as [_ [[-> ->]|[[-> ->]|(j & -> & ->)]]].
  - done.
Qed.

Definition stops_count (m : memory) : nat := (one (bool_decide (me_reason m <> None)) + one (me_started m))%nat.

(** What a call has to respect for the invariant to be kept. *)
Record respectful (m m' : memory) (p p' : promise) (planner_ended output_ended : bool) : Prop := {
  re_role : pr_role p' = pr_role p;
  re_waiting : pr_waiting p' = true ->
    pr_waiting p = true /\ me_plan_taken m' = me_plan_taken m /\ me_output_taken m' = me_output_taken m;
  re_plan_taken : me_plan_taken m' = me_plan_taken m \/ pr_role p = Planner;
  re_output_taken : me_output_taken m' = me_output_taken m \/ pr_role p = Output;
  re_writing : (writing p' + one (me_write_locked m) = writing p + one (me_write_locked m'))%nat;
  re_joining : (joining p' + one (me_join_locked m) = joining p + one (me_join_locked m'))%nat;
  re_first : pr_first p' = true -> pr_writing p' = true /\ me_started m' = false;
  re_started : me_started m' = me_started m \/ pr_writing p = true;
  re_plan : me_plan_tokens m' + me_plan_taken m' + Z.of_nat (pr_owes_plan p') + Z.of_nat (stops_count m) =
    me_plan_tokens m + me_plan_taken m + Z.of_nat (pr_owes_plan p) + Z.of_nat (stops_count m');
  re_output : me_output_tokens m' + me_output_taken m' + Z.of_nat (pr_owes_output p') + Z.of_nat (stops_count m) =
    me_output_tokens m + me_output_taken m + Z.of_nat (pr_owes_output p) + Z.of_nat (stops_count m');
  re_tokens : 0 <= me_plan_tokens m' /\ 0 <= me_plan_taken m' /\ 0 <= me_output_tokens m' /\ 0 <= me_output_taken m';
  re_ended : (pr_joined_output p' = true -> output_ended = true) /\
    (pr_joined_planner p' = true -> planner_ended = true);
  re_joined : (me_output_joinable m' = false -> me_output_joinable m = false \/ output_ended = true) /\
    (me_planner_joinable m' = false -> me_planner_joinable m = false \/ planner_ended = true)
}.

Lemma lookup_set {A} (ts : list A) i t t' j u :
  ts !! i = Some t -> <[i := t']> ts !! j = Some u -> (j = i /\ u = t') \/ (j <> i /\ ts !! j = Some u).
Proof.
  intros Hi Hj. destruct (decide (j = i)) as [->|Hne].
  - rewrite list_lookup_insert_eq in Hj by (by eapply lookup_lt_Some). injection Hj as <-. by left.
  - rewrite list_lookup_insert_ne in Hj by done. by right.
Qed.

Lemma ended_set (ts : list thread) i p R (e : mpc_call R) k t' j :
  ts !! i = Some {| th_promise := p; th_left := Call e k |} ->
  th_ended (ts !! j) = true -> th_ended (<[i := t']> ts !! j) = true.
Proof.
  intros Hi. destruct (decide (j = i)) as [->|Hne]; [by rewrite Hi|]. by rewrite list_lookup_insert_ne by done.
Qed.

Lemma sound_replace m m' ts i p p' R (e : mpc_call R) k prg :
  sound {| pd_memory := m; pd_threads := ts |} ->
  ts !! i = Some {| th_promise := p; th_left := Call e k |} ->
  keeps p' prg done_with ->
  respectful m m' p p' (th_ended (ts !! 0%nat)) (th_ended (ts !! 1%nat)) ->
  sound {| pd_memory := m'; pd_threads := <[i := {| th_promise := p'; th_left := prg |}]> ts |}.
Proof.
  intros Hs Hi Hk Hr. pose proof (total_insert writing ts i _ {| th_promise := p'; th_left := prg |} Hi) as Tw.
  pose proof (total_insert joining ts i _ {| th_promise := p'; th_left := prg |} Hi) as Tj.
  pose proof (total_insert pr_owes_plan ts i _ {| th_promise := p'; th_left := prg |} Hi) as Tp.
  pose proof (total_insert pr_owes_output ts i _ {| th_promise := p'; th_left := prg |} Hi) as To.
  cbn [th_promise] in *.
  pose proof (so_writing _ Hs) as Hw. pose proof (so_joining _ Hs) as Hj.
  pose proof (so_plan _ Hs) as Hp. pose proof (so_output _ Hs) as Ho.
  destruct Hr as [R1 R2 R3 R4 R5 R6 R7 R8 R9 R10 R11 R0 R12]. unfold stops_count in *. cbn [pd_memory pd_threads] in *.
  split; cbn [pd_memory pd_threads]; try lia.
  - intros j u Hu. destruct (lookup_set _ _ _ _ _ _ Hi Hu) as [[-> ->]|[_ Hu']]; [done|]. by apply (so_keeps _ Hs j).
  - intros j u Hu. destruct (lookup_set _ _ _ _ _ _ Hi Hu) as [[-> ->]|[_ Hu']]; [|by apply (so_role _ Hs j)].
    cbn. rewrite R1. apply (so_role _ Hs i _ Hi).
  - intros j u Hu Hwait. pose proof (so_role _ Hs i _ Hi) as Hri. cbn in Hri.
    destruct (lookup_set _ _ _ _ _ _ Hi Hu) as [[-> ->]|[Hne Hu']]; cbn [th_promise] in *.
    + destruct (R2 Hwait) as (Hw' & -> & ->). rewrite R1. apply (so_waiting _ Hs i _ Hi Hw').
    + pose proof (so_waiting _ Hs j u Hu' Hwait) as Hold. pose proof (so_role _ Hs j u Hu') as Hrj. cbn in Hold.
      destruct (pr_role (th_promise u)); [destruct R3 as [->|Hr]|destruct R4 as [->|Hr]|]; try done;
        rewrite Hr in Hri; destruct i as [|[|]], j as [|[|]]; done.
  - intros j u Hu Hfirst. destruct (lookup_set _ _ _ _ _ _ Hi Hu) as [[-> ->]|[Hne Hu']]; [by apply R7|].
    destruct (so_first _ Hs j u Hu' Hfirst) as [Hw1 Hst]. split; [done|]. cbn in Hst.
    destruct R8 as [->|Hw2]; [done|].
    pose proof (total_two writing ts i j _ u Hi Hu' (not_eq_sym Hne)) as H2. cbn in H2. unfold writing in H2 at 1 2.
    rewrite Hw1, Hw2 in H2. cbn in H2. destruct (me_write_locked m); cbn in Hw; lia.
  - intros j u Hu. destruct (lookup_set _ _ _ _ _ _ Hi Hu) as [[-> ->]|[Hne Hu']].
    + destruct R0. split; intros Hj'; eapply ended_set; eauto.
    + destruct (so_ended _ Hs j u Hu'). split; intros Hj'; eapply ended_set; eauto.
  - destruct R12 as [R12 R13]. destruct (so_joined _ Hs) as [J1 J2]. cbn in J1, J2.
    split; intros Hj'; eapply ended_set; try done; [destruct (R12 Hj')|destruct (R13 Hj')]; auto.
Qed.

(** The fields of [respectful], once the memory and the promise are computed. *)
Ltac settle :=
  split; unfold stops_count, writing, joining in *; cbn in *; subst; cbn in *;
  try done; try tauto; try lia.

Lemma call_respectful m m' ts i p p' R (e : mpc_call R) k r :
  sound {| pd_memory := m; pd_threads := ts |} ->
  ts !! i = Some {| th_promise := p; th_left := Call e k |} ->
  mem_call (th_ended (ts !! 0%nat)) (th_ended (ts !! 1%nat)) (Event e r) m m' -> next_promise (Event e r) p p' ->
  respectful m m' p p' (th_ended (ts !! 0%nat)) (th_ended (ts !! 1%nat)).
Proof.
  intros Hs Hi Hm Hn.
  pose proof (so_first _ Hs i _ Hi) as Hf. pose proof (so_tokens _ Hs) as Ht.
  pose proof (so_ended _ Hs i _ Hi) as He. pose proof (so_joined _ Hs) as Hjd. cbn [th_promise pd_memory pd_threads] in *.
  assert (pr_writing p = true -> me_write_locked m = true) as Hw.
  { intros Hp. pose proof (total_lookup writing _ _ _ Hi) as Hle. pose proof (so_writing _ Hs) as Htot.
    cbn in Hle, Htot. rewrite Htot in Hle. unfold writing in Hle. rewrite Hp in Hle. by destruct (me_write_locked m); [|cbn in Hle; lia]. }
  assert (pr_joining p = true -> me_join_locked m = true) as Hj.
  { intros Hp. pose proof (total_lookup joining _ _ _ Hi) as Hle. pose proof (so_joining _ Hs) as Htot.
    cbn in Hle, Htot. rewrite Htot in Hle. unfold joining in Hle. rewrite Hp in Hle. by destruct (me_join_locked m); [|cbn in Hle; lia]. }
  assert (m' = m -> p' = p -> respectful m m' p p' (th_ended (ts !! 0%nat)) (th_ended (ts !! 1%nat))) as Hsame.
  { intros -> ->. split; auto; try lia. }
  destruct e; cbn in Hm, Hn; try (by apply Hsame);
    try (match type of Hm with _ /\ _ => destruct Hm as [_ Hm] end; by apply Hsame);
    try (match type of Hn with _ /\ _ => destruct Hn as [_ Hn] end; by apply Hsame).
  all: clear Hs Hi; unfold settled, unlocked in Hn; try (destruct r; [|destruct Hm as [_ Hm]; by apply Hsame]);
    try (destruct Hm as [Hm|Hm]; [destruct Hn as (_ & _ & Hn); by apply Hsame|]); clear Hsame;
    destruct m as [rs st wl jl pt ot pk ok pj oj], p as [ro wa wr fi jo jdo jdp op oo]; cbn in *;
    destruct_and?; subst; try (destruct Hn as (n & -> & ->)).
  all: try by settle.
  all: settle; try (destruct (Hf eq_refl) as [-> ->]; cbn; lia); try (by rewrite Hw); try (by rewrite Hj).
  all: first [by destruct wr, st | destruct oj, pj; cbn; auto].
Qed.

(** ** Every execution of a session keeps the promises *)

(** A step of the programs, as it looks with the promises. *)
Lemma step_promise s l s1 :
  sys_step (erase s) l s1 -> sound s ->
  exists i p R (e : mpc_call R) k r m' p', l = (i, Event e r) /\
    pd_threads s !! i = Some {| th_promise := p; th_left := Call e k |} /\
    mem_call (th_ended (pd_threads s !! 0%nat)) (th_ended (pd_threads s !! 1%nat)) (Event e r) (pd_memory s) m' /\
    next_promise (Event e r) p p' /\ keeps p' (k r) done_with /\
    s1 = erase {| pd_memory := m';
                  pd_threads := <[i := {| th_promise := p'; th_left := k r |}]> (pd_threads s) |}.
Proof.
  intros (i & R & e & k & r & m' & -> & Hi & Hm & ->)%sys_step_inv Hs. cbn [erase sy_memory sy_threads] in *.
  rewrite !th_ended_left in Hm. rewrite list_lookup_fmap in Hi.
  destruct (pd_threads s !! i) as [[p prg]|] eqn:Ht; [|done]. cbn in Hi. injection Hi as ->.
  destruct (so_keeps _ Hs i _ Ht r) as (p' & Hn & Hk). exists i, p, R, e, k, r, m', p'.
  do 5 (split; [done|]). unfold erase. cbn [pd_memory pd_threads]. f_equal. symmetry.
  exact (list_fmap_insert th_left (pd_threads s) i {| th_promise := p'; th_left := k r |}).
Qed.

Lemma sound_step s l s1 : sound s -> sys_step (erase s) l s1 -> exists s', s1 = erase s' /\ sound s'.
Proof.
  intros Hs Hstep. destruct (step_promise _ _ _ Hstep Hs)
    as (i & p & R & e & k & r & m' & p' & _ & Hi & Hm & Hn & Hk & ->).
  eexists. split; [reflexivity|]. destruct s as [m ts].
  eapply sound_replace; [done|done|done|]. by eapply call_respectful.
Qed.

Lemma exec_sound s tr s1 : sound s -> exec (erase s) tr s1 -> exists s', s1 = erase s' /\ sound s'.
Proof.
  intros Hs. induction 1 as [|tr s1 l s2 _ IH Hstep]; [by exists s|].
  destruct IH as (s' & -> & Hs'). by eapply sound_step.
Qed.

Lemma session_sound fuel w c calls tr s :
  exec (session fuel w c calls) tr s -> exists s', s = erase s' /\ sound s'.
Proof. rewrite <- session_promised. apply exec_sound, promised_sound. Qed.

(** ** Results *)

(** The semaphores of a session are never released beyond the bound of
    [std::counting_semaphore<2>], which would be undefined behaviour.  However
    the callers' [write], [stop] and [status] and the faults of the workers
    interleave, only the first target and the first stop release a token to
    each worker, and the two counters stay between 0 and 2. *)
Theorem semaphores_bounded fuel w c calls tr s :
  exec (session fuel w c calls) tr s ->
  0 <= me_plan_tokens (sy_memory s) <= 2 /\ 0 <= me_output_tokens (sy_memory s) <= 2.
Proof.
  intros (s' & -> & Hs)%session_sound. pose proof (so_tokens _ Hs) as (H1 & H2 & H3 & H4).
  pose proof (so_plan _ Hs) as Hp. pose proof (so_output _ Hs) as Ho. cbn [erase sy_memory].
  destruct (bool_decide _), (me_started _); cbn in Hp, Ho; lia.
Qed.

(** *** No deadlock *)

(** What a call waits for. *)
Definition waits (planner_ended output_ended : bool) (m : memory) {R} (e : mpc_call R) : Prop :=
  match e with
  | PlanAcquire => me_plan_tokens m <= 0
  | OutputAcquire => me_output_tokens m <= 0
  | WriteLock => me_write_locked m = true
  | JoinLock => me_join_locked m = true
  | JoinOutput => output_ended = false
  | JoinPlanner => planner_ended = false
  | _ => False
  end.

#[local] Instance plan_inhabited : Inhabited MPCPlan := populate plan0.
#[local] Instance wl_status_inhabited : Inhabited wl_status := populate WL_OK.

Lemma call_answered pe oe m R (e : mpc_call R) :
  (exists r m', mem_call pe oe (Event e r) m m') \/ waits pe oe m e.
Proof.
  destruct e; try (left; exists inhabitant, m; done).
  - left. by exists (me_reason m), m.
  - left. destruct (decide (me_reason m = None)) as [Hr|Hr]; [by exists true; eexists|by exists false, m].
  - left. by exists (me_started m), m.
  - left. exists tt. by eexists.
  - left. exists tt. by eexists.
  - left. exists tt. by eexists.
  - destruct (decide (0 < me_plan_tokens m)); [left; exists tt; by eexists|right; cbn; lia].
  - destruct (decide (0 < me_output_tokens m)); [left; exists tt; by eexists|right; cbn; lia].
  - left. exists tt, m. by left.
  - left. exists tt, m. by left.
  - destruct (me_write_locked m) eqn:Hw; [by right|left; exists tt; by eexists].
  - left. exists tt. by eexists.
  - destruct (me_join_locked m) eqn:Hj; [by right|left; exists tt; by eexists].
  - left. exists tt. by eexists.
  - left. by exists (me_output_joinable m), m.
  - left. by exists (me_planner_joinable m), m.
  - destruct oe; [left; exists tt; by eexists|by right].
  - destruct pe; [left; exists tt; by eexists|by right].
Qed.

(** A thread that cannot go on. *)
Definition stuck (s : promised) (t : thread) : Prop :=
  match th_left t with
  | Ret _ => True
  | Call e _ => waits (th_ended (pd_threads s !! 0%nat)) (th_ended (pd_threads s !! 1%nat)) (pd_memory s) e
  end.

Lemma stuck_or_step s :
  (forall i t, pd_threads s !! i = Some t -> stuck s t) \/ exists l s', sys_step (erase s) l s'.
Proof.
  assert (forall ts : list thread, (forall i t, ts !! i = Some t -> stuck s t) \/
    exists i p R (e : mpc_call R) k r m', ts !! i = Some {| th_promise := p; th_left := Call e k |} /\
      mem_call (th_ended (pd_threads s !! 0%nat)) (th_ended (pd_threads s !! 1%nat)) (Event e r) (pd_memory s) m') as Hscan.
  { induction ts as [|t ts IH]; [by left|].
    assert (stuck s t \/ exists p R (e : mpc_call R) k r m', t = {| th_promise := p; th_left := Call e k |} /\
      mem_call (th_ended (pd_threads s !! 0%nat)) (th_ended (pd_threads s !! 1%nat)) (Event e r) (pd_memory s) m') as [Ht|Ht].
    { destruct t as [p [b|R e k]]; [by left|].
      destruct (call_answered (th_ended (pd_threads s !! 0%nat)) (th_ended (pd_threads s !! 1%nat)) (pd_memory s) R e)
        as [(r & m' & Hm)|Hw]; [|by left]. right. by exists p, R, e, k, r, m'. }
    - destruct IH as [IH|(i & H)]; [left; intros [|i] u; [by intros [= <-]|apply IH]|right; by exists (S i)].
    - right. destruct Ht as (p & R & e & k & r & m' & -> & Hm). by exists 0%nat, p, R, e, k, r, m'. }
  destruct (Hscan (pd_threads s)) as [H|(i & p & R & e & k & r & m' & Hi & Hm)]; [by left|]. right.
  rewrite <- !th_ended_left in Hm. eexists _, _. apply (sys_call _ _ i R e k r m'); [|exact Hm].
  cbn [erase sy_threads]. by rewrite list_lookup_fmap, Hi.
Qed.

(** What a thread that waits has promised. *)
Lemma waits_promise pe oe m p R (e : mpc_call R) (k : R -> mpc bool) :
  waits pe oe m e -> keeps p (Call e k) done_with ->
  settled p /\
  (pr_role p = Planner -> pr_waiting p = true /\ me_plan_tokens m <= 0) /\
  (pr_role p = Output -> pr_waiting p = true /\ me_output_tokens m <= 0) /\
  (pr_role p = Caller -> pe = true -> oe = true ->
     unlocked p /\ (me_write_locked m = true \/ me_join_locked m = true)).
Proof.
  intros Hw Hk. destruct e; try done; cbn in Hw; destruct (Hk tt) as (p' & Hn & _); cbn in Hn;
    unfold unlocked, settled in *; destruct_and?; (split; [done|]); (split; [intros Hr|split; [intros Hr|intros Hr Hpe Hoe]]);
    try congruence; try (by split); tauto || (split; [done|]; tauto).
Qed.

Lemma session_length fuel w c calls : length (sy_threads (session fuel w c calls)) = S (S (length calls)).
Proof. cbn. by rewrite length_map. Qed.

Lemma exec_length s tr s' : exec s tr s' -> length (sy_threads s') = length (sy_threads s).
Proof.
  induction 1 as [|tr s1 l s2 _ IH Hstep]; [done|]. rewrite <- IH.
  destruct Hstep as [m ts i R e k r m' Hi Hm]. cbn. apply length_insert.
Qed.

(** Nobody owes a token when every thread has ended or waits. *)
Lemma stuck_settled s i t :
  sound s -> stuck s t -> pd_threads s !! i = Some t -> settled (th_promise t).
Proof.
  intros Hs Hst Hi. pose proof (so_keeps _ Hs i t Hi) as Hk. destruct t as [p [b|R e k]].
  - apply Hk.
  - by destruct (waits_promise _ _ _ _ _ _ _ Hst Hk).
Qed.

(** A stuck worker has ended, once the session is started or stopped. *)
Lemma stuck_worker s i t :
  sound s -> (forall i t, pd_threads s !! i = Some t -> stuck s t) ->
  me_reason (pd_memory s) <> None \/ me_started (pd_memory s) = true ->
  pd_threads s !! i = Some t -> pr_role (th_promise t) <> Caller -> th_ended (Some t) = true.
Proof.
  intros Hs Hall Hgo Hi Hrole. pose proof (Hall i t Hi) as Hst. pose proof (so_keeps _ Hs i t Hi) as Hk.
  pose proof (so_waiting _ Hs i t Hi) as Hwait.
  assert (total pr_owes_plan (pd_threads s) = 0 /\ total pr_owes_output (pd_threads s) = 0)%nat as [Hp0 Ho0].
  { split; apply total_zero; intros j u Hu; by destruct (stuck_settled s j u Hs (Hall j u Hu) Hu). }
  pose proof (so_plan _ Hs) as Hp. pose proof (so_output _ Hs) as Ho. rewrite Hp0 in Hp. rewrite Ho0 in Ho.
  assert (1 <= one (bool_decide (me_reason (pd_memory s) <> None)) + one (me_started (pd_memory s)))%nat as H1.
  { destruct Hgo as [Hgo| ->]; [|cbn; lia]. rewrite bool_decide_true by done. cbn. lia. }
  destruct t as [p [b|R e k]]; [done|]. cbn [th_promise th_left stuck] in *.
  destruct (waits_promise _ _ _ _ _ _ _ Hst Hk) as (_ & Hplanner & Houtput & _).
  destruct (pr_role p); [destruct (Hplanner eq_refl) as [Hw Ht]|destruct (Houtput eq_refl) as [Hw Ht]|done];
    specialize (Hwait Hw); lia.
Qed.

(** When nothing can go on, everything has ended. *)
Lemma stuck_ended s :
  sound s -> (2 <= length (pd_threads s))%nat ->
  me_reason (pd_memory s) <> None \/ me_started (pd_memory s) = true ->
  (forall i t, pd_threads s !! i = Some t -> stuck s t) ->
  forall i t, pd_threads s !! i = Some t -> th_ended (Some t) = true.
Proof.
  intros Hs Hlen Hgo Hall.
  assert (forall i, (i < 2)%nat -> th_ended (pd_threads s !! i) = true) as Hworkers.
  { intros i Hi. destruct (lookup_lt_is_Some_2 (pd_threads s) i) as [t Ht]; [lia|]. rewrite Ht.
    apply (stuck_worker s i t Hs Hall Hgo Ht). rewrite (so_role _ Hs i t Ht). by destruct i as [|[|]]; [| |lia]. }
  assert (forall i t, pd_threads s !! i = Some t -> th_ended (Some t) = false ->
    me_write_locked (pd_memory s) = true \/ me_join_locked (pd_memory s) = true) as Hlocked.
  { intros i t Hi He. pose proof (Hall i t Hi) as Hst. pose proof (so_keeps _ Hs i t Hi) as Hk.
    destruct (decide (pr_role (th_promise t) = Caller)) as [Hr|Hr].
    - destruct t as [p [b|R e k]]; [done|]. destruct (waits_promise _ _ _ _ _ _ _ Hst Hk) as (_ & _ & _ & Hc).
      by apply Hc; [|apply Hworkers; lia|apply Hworkers; lia].
    - by rewrite (stuck_worker s i t Hs Hall Hgo Hi Hr) in He. }
  assert (forall i t, pd_threads s !! i = Some t -> unlocked (th_promise t)) as Hunlocked.
  { intros i t Hi. pose proof (Hall i t Hi) as Hst. pose proof (so_keeps _ Hs i t Hi) as Hk.
    destruct t as [p [b|R e k]]; [apply Hk|]. destruct (waits_promise _ _ _ _ _ _ _ Hst Hk) as (_ & _ & _ & Hc).
    apply Hc; [|apply Hworkers; lia|apply Hworkers; lia]. destruct (decide (pr_role p = Caller)) as [|Hr]; [done|].
    by pose proof (stuck_worker s i _ Hs Hall Hgo Hi Hr). }
  assert (me_write_locked (pd_memory s) = false /\ me_join_locked (pd_memory s) = false) as [Hwl Hjl].
  { pose proof (so_writing _ Hs) as Hw. pose proof (so_joining _ Hs) as Hj.
    rewrite total_zero in Hw by (intros i t Hi; unfold writing; by rewrite (proj1 (Hunlocked i t Hi))).
    rewrite total_zero in Hj by (intros i t Hi; unfold joining; by rewrite (proj2 (Hunlocked i t Hi))).
    by destruct (me_write_locked _), (me_join_locked _). }
  intros i t Hi. destruct (th_ended (Some t)) eqn:He; [done|]. destruct (Hlocked i t Hi He) as [Hl|Hl]; congruence.
Qed.

(** C12: a session cannot deadlock.  The threads run the planner, the output
    worker and the calls of any number of callers, each step the next call of one
    of these programs.  Once the first target has been written or a stop has been
    requested, by a caller or by a worker, in every reachable state either all of
    them have ended or some thread can go on: no wake-up is lost, although the
    workers wait for the semaphores, callers for the mutexes, and [stop] for both
    workers while it holds one. *)
Theorem session_progress fuel w c calls tr s :
  exec (session fuel w c calls) tr s ->
  me_reason (sy_memory s) <> None \/ me_started (sy_memory s) = true ->
  (forall i t, sy_threads s !! i = Some t -> ended (Some t) = true) \/ exists l s', sys_step s l s'.
Proof.
  intros Hex Hgo. pose proof (exec_length _ _ _ Hex) as Hlen. rewrite session_length in Hlen.
  destruct (session_sound _ _ _ _ _ _ Hex) as (s' & -> & Hs). cbn [erase sy_memory sy_threads] in *.
  rewrite length_map in Hlen. destruct (stuck_or_step s') as [Hall|Hstep]; [left|by right].
  intros i t Hi. rewrite <- Hi, th_ended_left. rewrite list_lookup_fmap in Hi.
  destruct (pd_threads s' !! i) as [u|] eqn:Hu; [|done].
  apply (stuck_ended s' Hs ltac:(lia) Hgo Hall i u Hu).
Qed.

(** *** After a stop *)

Lemma step_ended s l s' j : sys_step s l s' -> ended (sy_threads s !! j) = true -> ended (sy_threads s' !! j) = true.
Proof.
  intros [m ts i R e k r m' Hi _]. cbn [sy_threads]. destruct (decide (j = i)) as [->|Hne]; [by rewrite Hi|].
  by rewrite list_lookup_insert_ne by done.
Qed.

(** A command is the output worker's; the release of the join mutex comes after
    both workers have ended. *)
Lemma step_send s i c r s1 :
  sound s -> sys_step (erase s) (i, Event (Send c) r) s1 -> th_ended (pd_threads s !! 1%nat) = false.
Proof.
  intros Hs Hstep. destruct (step_promise _ _ _ Hstep Hs)
    as (i' & p & R & e & k & r' & m' & p' & Hl & Hi & _ & Hn & _ & _).
  pose proof (f_equal snd Hl) as Hev. cbn in Hev. rewrite <- Hev in Hn. destruct Hn as [Hr _].
  pose proof (so_role _ Hs i' _ Hi) as Hri. cbn in Hri. rewrite Hr in Hri.
  destruct i' as [|[|i']]; try done. by rewrite Hi.
Qed.

Lemma step_unlock s i s1 :
  sound s -> sys_step (erase s) (i, Event JoinUnlock tt) s1 ->
  th_ended (pd_threads s !! 1%nat) = true /\ th_ended (pd_threads s !! 0%nat) = true.
Proof.
  intros Hs Hstep. destruct (step_promise _ _ _ Hstep Hs)
    as (i' & p & R & e & k & r' & m' & p' & Hl & Hi & _ & Hn & _ & _).
  pose proof (f_equal snd Hl) as Hev. cbn in Hev. rewrite <- Hev in Hn.
  destruct Hn as (_ & _ & Ho & Hp & _). destruct (so_ended _ Hs i' _ Hi) as [E1 E2]. cbn in *. auto.
Qed.

Lemma step_reason s l s' :
  sys_step s l s' -> me_reason (sy_memory s) <> None -> me_reason (sy_memory s') = me_reason (sy_memory s).
Proof.
  intros [m ts i R e k r m' _ Hm] Hr. cbn in *.
  destruct e; cbn in Hm; try (by subst m'); try (by destruct Hm as [_ ->]); try by destruct Hm as [->|[_ ->]].
  destruct r; [by destruct Hm|]. by destruct Hm as [_ ->].
Qed.

(** C13: a stop that has returned is final.  When a thread of a session leaves
    [stop] (with the release of the join mutex), both workers have ended,
    whichever caller joined them, and in no continuation is another command
    sent. *)
Theorem stop_is_final fuel w c calls tr1 s1 i s2 tr2 s3 :
  exec (session fuel w c calls) tr1 s1 -> sys_step s1 (i, Event JoinUnlock tt) s2 -> exec s2 tr2 s3 ->
  ended (sy_threads s3 !! 0%nat) = true /\ ended (sy_threads s3 !! 1%nat) = true /\
  forall j cmd sent, ~ In (j, Event (Send cmd) sent) tr2.
Proof.
  intros Hex Hstep Hex2. destruct (session_sound _ _ _ _ _ _ Hex) as (s1' & -> & Hs1).
  destruct (step_unlock _ _ _ Hs1 Hstep) as [H1 H0]. rewrite <- th_ended_left in H1, H0.
  destruct (sound_step _ _ _ Hs1 Hstep) as (s2' & -> & Hs2).
  apply (step_ended _ _ _ 1%nat Hstep) in H1. apply (step_ended _ _ _ 0%nat Hstep) in H0.
  induction Hex2 as [|tr2 s3 l s4 Hex2 IH Hstep2]; [split_and!; [done|done|by intros ? ? ? []]|].
  destruct IH as (E0 & E1 & Hno).
  split; [by apply (step_ended _ _ _ _ Hstep2)|]. split; [by apply (step_ended _ _ _ _ Hstep2)|].
  intros j cmd sent [Hin|[->|[]]]%in_app_or; [by apply (Hno j cmd sent)|].
  destruct (exec_sound _ _ _ Hs2 Hex2) as (s3' & -> & Hs3).
  apply (step_send s3') in Hstep2; [|done]. cbn in E1. rewrite th_ended_left in E1. congruence.
Qed.

(** *** What a thread has done *)

Definition local (i : nat) (tr : list (nat * event mpc_call)) : list (event mpc_call) :=
  flat_map (fun l => if (fst l =? i)%nat then [snd l] else []) tr.

Lemma local_app i tr1 tr2 : local i (tr1 ++ tr2) = local i tr1 ++ local i tr2.
Proof. apply flat_map_app. Qed.

Lemma exec_local s tr s' i t0 :
  exec s tr s' -> sy_threads s !! i = Some t0 ->
  exists t, sy_threads s' !! i = Some t /\
    forall l b, runs t l b -> runs t0 (local i tr ++ l) b.
Proof.
  intros Hex Hi. induction Hex as [|tr s1 lab s2 Hex IH Hstep]; [by exists t0|].
  destruct IH as (t & Ht & Hr). destruct Hstep as [m ts j R e k r m' Hj _]. cbn in *.
  rewrite local_app. cbn. destruct (Nat.eqb_spec j i) as [->|Hne].
  - exists (k r). split; [by rewrite list_lookup_insert_eq by (by eapply lookup_lt_Some)|].
    intros l b Hl. rewrite Hj in Ht. injection Ht as <-. rewrite <- app_assoc. apply Hr. cbn. by exists r.
  - exists t. split; [by rewrite list_lookup_insert_ne by done|]. intros l b Hl. rewrite app_nil_r. by apply Hr.
Qed.

(** A thread that has learnt of the stop learnt the truth. *)
Lemma exec_stop_seen s tr s' i :
  exec s tr s' -> stop_seen (local i tr) -> me_reason (sy_memory s') <> None.
Proof.
  induction 1 as [|tr s1 lab s2 Hex IH Hstep]; [by intros Hn%List.Exists_nil|].
  rewrite local_app. unfold stop_seen. rewrite List.Exists_app. intros [Hseen|Hseen].
  { rewrite (step_reason _ _ _ Hstep); by apply IH. }
  destruct Hstep as [m ts j R e k r m' _ Hm]. cbn in Hseen. cbn [sy_memory].
  destruct (j =? i)%nat; [|by apply List.Exists_nil in Hseen].
  apply List.Exists_cons in Hseen as [Hseen|Hseen%List.Exists_nil]; [|done].
  destruct e; try done; cbn in Hseen, Hm.
  - destruct Hm as [-> ->]. done.
  - destruct r; [by destruct Hm as [_ ->]|by destruct Hm as [? ->]].
Qed.

(** No worker ends silently.  In every execution in which the planner (thread
    0) or the output worker (thread 1) has ended, for whatever reason (a check
    that failed, a callback that threw, a mailbox that failed, a stop), the
    session is stopped; and the worker, having learnt this, published its last
    counters, and nothing after them except a further request to stop if that
    publication failed. *)
Theorem workers_end_stopped fuel w c calls tr s i :
  exec (session fuel w c calls) tr s ->
  sy_threads s !! i = Some (Ret true) -> (i < 2)%nat ->
  me_reason (sy_memory s) <> None /\
  last_words (match i with O => PlannerStatusPublish | _ => OutputStatusPublish end) (local i tr).
Proof.
  intros Hex Hi Hlt.
  assert (last_words (match i with O => PlannerStatusPublish | _ => OutputStatusPublish end) (local i tr)) as Hl.
  { assert (forall t0, sy_threads (session fuel w c calls) !! i = Some t0 -> runs t0 (local i tr) true) as Hr.
    { intros t0 H0. destruct (exec_local _ _ _ i t0 Hex H0) as (t & Ht & Hr). rewrite Hi in Ht. injection Ht as <-.
      specialize (Hr [] true (conj eq_refl eq_refl)). by rewrite app_nil_r in Hr. }
    destruct (worker_last_words fuel w c (local i tr)) as [Hp Ho].
    destruct i as [|[|]]; [apply Hp, (Hr _ eq_refl)|apply Ho, (Hr _ eq_refl)|lia]. }
  split; [|done]. destruct Hl as (l1 & st & published & l2 & Hl & Hseen & _).
  apply (exec_stop_seen _ _ _ i Hex). rewrite Hl. by apply stop_seen_app.
Qed.

(** ** Running a session

    A scheduler: the threads to step, in order, with the answers from the
    outside given by [outside]. *)

Definition mem_exec (pe oe : bool) (m : memory) {R} (e : mpc_call R) (d : R) : option (R * memory) :=
  match e in mpc_call R return R -> option (R * memory) with
  | LoadReason => fun _ => Some (me_reason m, m)
  | ExchangeReason x => fun _ =>
      match me_reason m with
      | None => Some (true, me_stop (Some x) (me_started m) m)
      | Some _ => Some (false, m)
      end
  | LoadStarted => fun _ => Some (me_started m, m)
  | StoreStarted => fun _ => Some (tt, me_stop (me_reason m) true m)
  | PlanRelease => fun _ => Some (tt, plan_released m)
  | OutputRelease => fun _ => Some (tt, output_released m)
  | PlanAcquire => fun _ => if 0 <? me_plan_tokens m then Some (tt, plan_acquired m) else None
  | OutputAcquire => fun _ => if 0 <? me_output_tokens m then Some (tt, output_acquired m) else None
  | WriteLock => fun _ => if me_write_locked m then None else Some (tt, me_lock true (me_join_locked m) m)
  | WriteUnlock => fun _ => Some (tt, me_lock false (me_join_locked m) m)
  | JoinLock => fun _ => if me_join_locked m then None else Some (tt, me_lock (me_write_locked m) true m)
  | JoinUnlock => fun _ => Some (tt, me_lock (me_write_locked m) false m)
  | OutputJoinable => fun _ => Some (me_output_joinable m, m)
  | PlannerJoinable => fun _ => Some (me_planner_joinable m, m)
  | JoinOutput => fun _ => if oe then Some (tt, me_joinable (me_planner_joinable m) false m) else None
  | JoinPlanner => fun _ => if pe then Some (tt, me_joinable false (me_output_joinable m) m) else None
  | _ => fun d => Some (d, m)
  end d.

Lemma mem_exec_call pe oe m R (e : mpc_call R) d r m' :
  mem_exec pe oe m e d = Some (r, m') -> mem_call pe oe (Event e r) m m'.
Proof.
  destruct e; cbn; try (intros [= -> ->]; by auto); try (by intros [= <- <-]); try (destruct d; by intros [= <- <-]).
  - destruct (me_reason m) eqn:Hr; intros [= <- <-]; done.
  - destruct (0 <? me_plan_tokens m) eqn:Ht; [|done]. intros [= _ <-]. by apply Z.ltb_lt in Ht.
  - destruct (0 <? me_output_tokens m) eqn:Ht; [|done]. intros [= _ <-]. by apply Z.ltb_lt in Ht.
  - destruct (me_write_locked m) eqn:Ht; [done|]. by intros [= _ <-].
  - destruct (me_join_locked m) eqn:Ht; [done|]. by intros [= _ <-].
  - destruct oe; [|done]. by intros [= _ <-].
  - destruct pe; [|done]. by intros [= _ <-].
Qed.

Fixpoint schedule (order : list nat) (m : memory) (ps : list (mpc bool)) (clock : Z) :
    option (list (nat * event mpc_call) * memory * list (mpc bool)) :=
  match order with
  | [] => Some ([], m, ps)
  | i :: order' =>
      match ps !! i with
      | Some (Call e k) =>
          let '(d, clock') := outside _ e clock in
          match mem_exec (ended (ps !! 0%nat)) (ended (ps !! 1%nat)) m e d with
          | Some (r, m') =>
              match schedule order' m' (<[i := k r]> ps) clock' with
              | Some (tr, m2, ps2) => Some ((i, Event e r) :: tr, m2, ps2)
              | None => None
              end
          | None => None
          end
      | _ => None
      end
  end.

Lemma exec_cons s l s1 tr s2 : sys_step s l s1 -> exec s1 tr s2 -> exec s (l :: tr) s2.
Proof.
  intros Hstep. induction 1 as [|tr s2 l2 s3 _ IH Hstep2].
  - apply (exec_snoc s [] s l s1); [constructor|done].
  - rewrite app_comm_cons. by eapply exec_snoc.
Qed.

Lemma schedule_exec order m ps clock tr m' ps' :
  schedule order m ps clock = Some (tr, m', ps') ->
  exec {| sy_memory := m; sy_threads := ps |} tr {| sy_memory := m'; sy_threads := ps' |}.
Proof.
  revert m ps clock tr. induction order as [|i order IH]; intros m ps clock tr.
  - intros [= <- <- <-]. constructor.
  - cbn [schedule]. destruct (ps !! i) as [[b|R e k]|] eqn:Hi; [done| |done].
    destruct (outside R e clock) as [d clock'].
    destruct (mem_exec _ _ m e d) as [[r m1]|] eqn:Hm; [|done]. apply mem_exec_call in Hm.
    destruct (schedule order m1 _ clock') as [[[tr' m2] ps2]|] eqn:Hsch; [|done]. intros [= <- <- <-].
    eapply exec_cons; [by eapply sys_call|by eapply IH].
Qed.

(** A session that is stopped before its first target.  The caller sets the
    reason and releases the tokens; both workers wake up and end; the caller
    joins them. *)
Definition stopped_early : list nat := [2; 2; 2; 0; 0; 0; 0; 1; 1; 1; 1; 2; 2; 2; 2; 2]%nat.
Definition session0 : system := session 2 2 config0 [[ApiStop None; ApiStatus status0 status0]].

Lemma session0_run order tr m ps :
  schedule order memory0 (sy_threads session0) 0 = Some (tr, m, ps) ->
  exists s, exec session0 tr s /\ sy_memory s = m /\ sy_threads s = ps.
Proof. intros Hs. exists {| sy_memory := m; sy_threads := ps |}. split; [by eapply schedule_exec|done]. Qed.

Lemma semaphores_bounded_witness :
  exists tr s, exec session0 tr s /\ length tr = 3%nat /\ me_plan_tokens (sy_memory s) = 1 /\
    0 <= me_plan_tokens (sy_memory s) <= 2 /\ 0 <= me_output_tokens (sy_memory s) <= 2.
Proof.
  destruct (session0_run [2; 2; 2]%nat _ _ _ eq_refl) as (s & Hex & Hm & _).
  eexists _, s. split; [exact Hex|]. split; [by vm_compute|]. split; [rewrite Hm; by vm_compute|].
  exact (semaphores_bounded _ _ _ _ _ _ Hex).
Defined.

Lemma session_progress_witness :
  exists tr s, exec session0 tr s /\ me_reason (sy_memory s) = Some kStopped /\
    ((forall i t, sy_threads s !! i = Some t -> ended (Some t) = true) \/ exists l s', sys_step s l s').
Proof.
  destruct (session0_run [2]%nat _ _ _ eq_refl) as (s & Hex & Hm & _).
  assert (me_reason (sy_memory s) = Some kStopped) as Hr by (rewrite Hm; by vm_compute).
  eexists _, s. split; [exact Hex|]. split; [exact Hr|].
  apply (session_progress _ _ _ _ _ _ Hex). left. by rewrite Hr.
Defined.

Lemma workers_end_stopped_witness :
  exists tr s, exec session0 tr s /\
    sy_threads s !! 0%nat = Some (Ret true) /\
    me_reason (sy_memory s) <> None /\ last_words PlannerStatusPublish (local 0 tr).
Proof.
  destruct (session0_run [2; 2; 0; 0; 0; 0]%nat _ _ _ eq_refl) as (s & Hex & _ & Hps).
  assert (sy_threads s !! 0%nat = Some (Ret true)) as Ht by (rewrite Hps; reflexivity).
  eexists _, s. split; [exact Hex|]. split; [exact Ht|].
  exact (workers_end_stopped _ _ _ _ _ _ 0%nat Hex Ht (le_S _ _ (le_n _))).
Defined.

Lemma exec_single s l s' : exec s [l] s' -> sys_step s l s'.
Proof.
  intros Hex. inversion Hex as [|tr s1 l' s2 Hex1 Hstep Heq]; subst.
  destruct tr as [|? tr]; [|by destruct tr]. injection Heq as ->.
  inversion Hex1 as [|tr' s1' l' s2' _ _ Heq]; [done|]. by destruct tr'.
Qed.

(** [exec] up to a label. *)
Lemma exec_split s tr1 tr2 s' : exec s (tr1 ++ tr2) s' -> exists s1, exec s tr1 s1 /\ exec s1 tr2 s'.
Proof.
  revert s'. induction tr2 as [|l tr2 IH] using rev_ind; intros s' Hex.
  - rewrite app_nil_r in Hex. exists s'. split; [done|constructor].
  - rewrite app_assoc in Hex. remember ((tr1 ++ tr2) ++ [l]) as tr eqn:Htr.
    destruct Hex as [|tr s1 l' s2 Hex Hstep]; [by destruct (tr1 ++ tr2)|].
    apply app_inj_tail in Htr as [-> ->]. destruct (IH s1 Hex) as (s3 & H1 & H2).
    exists s3. split; [done|]. by eapply exec_snoc.
Qed.

Lemma stop_is_final_witness :
  exists tr1 s1 s2 tr2 s3,
    exec session0 tr1 s1 /\ sys_step s1 (2%nat, Event JoinUnlock tt) s2 /\ exec s2 tr2 s3 /\ length tr2 = 3%nat /\
    ended (sy_threads s3 !! 1%nat) = true.
Proof.
  destruct (session0_run (stopped_early ++ [2; 2; 2; 2])%nat _ _ _ eq_refl) as (s & Hex & _).
  match type of Hex with exec _ ?tr _ => change tr with (take 16 tr ++ [(2%nat, Event JoinUnlock tt)] ++ drop 17 tr) in Hex end.
  apply exec_split in Hex as (s1 & Hex1 & (s2 & Hstep%exec_single & Hex2)%exec_split).
  eexists _, s1, s2, _, _. split; [exact Hex1|]. split; [exact Hstep|]. split; [exact Hex2|]. split; [by vm_compute|].
  destruct (stop_is_final 2 2 config0 _ _ _ _ _ _ _ Hex1 Hstep Hex2) as (_ & H & _). exact H.
Defined.
