(* ===== verification/Latency.v ===== *)
(** * Latency and durations

    [src/LatencyEstimator.cpp] with [include/florid/detail/LatencyEstimator.hpp]:
    the age of the last sample, the round trip and the regularity of arrivals;
    [include/florid/Duration.hpp]; and the functions of [ArmControl] that report
    them ([src/ArmImpl.cpp], lines 41-69).  The estimator is over [Arith]: what
    it computes is stated of its real reading.  At the end,
    [include/florid/detail/LatestValue.hpp]: the cells that hold the latest value. *)

From Stdlib Require Import SpecFloat Reals Lra Psatz.
From S2P Require Import Prelude Arith Prog.

(** ** The estimator *)

Definition g_window_size : Z := 64.

Section estimator.
Context {F : Type} `{Arith F}.

(** [LatencyEstimator]: times and intervals are in microseconds. *)
Record LatencyEstimator := {
  m_recv_time_us : Z;
  m_prev_recv_time_us : Z;
  m_intervals : list Z;
  m_window_idx : Z;
  m_window_count : Z;
  m_smoothed_rtt_ms : F;
  m_jitter_us : F;
  m_has_valid_rtt : bool
}.

Definition estimator0 : LatencyEstimator := {|
  m_recv_time_us := 0; m_prev_recv_time_us := 0;
  m_intervals := repeat 0 (Z.to_nat g_window_size); m_window_idx := 0; m_window_count := 0;
  m_smoothed_rtt_ms := of_Z 0; m_jitter_us := of_Z 0; m_has_valid_rtt := false |}.

(** The smoothing factor and its complement, which the code computes with
    [float]s: [m_alpha] and [1.0f - m_alpha]. *)
Variable alpha complement : F.

Local Open Scope arith_scope.

(** The two sums over the first [s_count] intervals. *)
Definition sum_intervals (l : list Z) : F := fold_left (fun s x => s + of_Z x) l (of_Z 0).
Definition sum_squares (mean : F) (l : list Z) : F :=
  fold_left (fun s x => let d := of_Z x - mean in s + d * d) l (of_Z 0).

(** The jitter of the intervals [l]: their standard deviation. *)
Definition jitter_of (l : list Z) : F :=
  let count := of_Z (Z.of_nat (length l)) in
  let mean := sum_intervals l / count in
  sqrt (sum_squares mean l / count).

(** The part of [markReceived] on the window (lines 14-39). *)
Definition mark_interval (now : Z) (e : LatencyEstimator) : LatencyEstimator :=
  if (m_prev_recv_time_us e >? 0)%Z then
    let delta := u64 (now - m_prev_recv_time_us e)%Z in
    let intervals := <[Z.to_nat (m_window_idx e) := delta]> (m_intervals e) in
    let idx := ((m_window_idx e + 1) mod g_window_size)%Z in
    let count := if (m_window_count e <? g_window_size)%Z then (m_window_count e + 1)%Z else m_window_count e in
    {| m_recv_time_us := m_recv_time_us e; m_prev_recv_time_us := m_prev_recv_time_us e;
       m_intervals := intervals; m_window_idx := idx; m_window_count := count;
       m_smoothed_rtt_ms := m_smoothed_rtt_ms e;
       m_jitter_us := if (count >=? 4)%Z then jitter_of (take (Z.to_nat count) intervals)
                      else m_jitter_us e;
       m_has_valid_rtt := m_has_valid_rtt e |}
  else e.

(** The part on the round trip (lines 42-51). *)
Definition rtt_ms (echo now : Z) : F := of_Z (u64 (now - echo)) / of_Z 1000.
Definition mark_rtt (echo now : Z) (e : LatencyEstimator) : LatencyEstimator :=
  if (echo >? 0)%Z then
    {| m_recv_time_us := m_recv_time_us e; m_prev_recv_time_us := m_prev_recv_time_us e;
       m_intervals := m_intervals e; m_window_idx := m_window_idx e; m_window_count := m_window_count e;
       m_smoothed_rtt_ms :=
         if negb (m_has_valid_rtt e) then rtt_ms echo now
         else alpha * rtt_ms echo now + complement * m_smoothed_rtt_ms e;
       m_jitter_us := m_jitter_us e; m_has_valid_rtt := true |}
  else e.

Definition set_times (recv prev : Z) (e : LatencyEstimator) : LatencyEstimator :=
  {| m_recv_time_us := recv; m_prev_recv_time_us := prev;
     m_intervals := m_intervals e; m_window_idx := m_window_idx e; m_window_count := m_window_count e;
     m_smoothed_rtt_ms := m_smoothed_rtt_ms e; m_jitter_us := m_jitter_us e;
     m_has_valid_rtt := m_has_valid_rtt e |}.

(** [markReceived]. *)
Definition markReceived (echo now : Z) (e : LatencyEstimator) : LatencyEstimator :=
  let e := mark_interval now (set_times now (m_prev_recv_time_us e) e) in
  mark_rtt echo now (set_times now now e).

(** [stateAgeUs], [estimatedLatencyMs], [receiveJitterUs]. *)
Definition stateAgeUs (now : Z) (e : LatencyEstimator) : Z :=
  if (m_recv_time_us e =? 0)%Z then 0%Z else u64 (now - m_recv_time_us e)%Z.
Definition estimatedLatencyMs (e : LatencyEstimator) : F := m_smoothed_rtt_ms e.
Definition receiveJitterUs (e : LatencyEstimator) : F := m_jitter_us e.

(** [receiveHz]: the sum is of 64-bit integers. *)
Definition receiveHz (e : LatencyEstimator) : F :=
  if (m_window_count e <? 4)%Z then of_Z 0
  else
    let sum := fold_left (fun s x => u64 (s + x)%Z) (take (Z.to_nat (m_window_count e)) (m_intervals e)) 0%Z in
    let average := of_Z sum / of_Z (m_window_count e) in
    if average <=? of_Z 0 then of_Z 0 else of_Z 1000000 / average.
End estimator.
Arguments LatencyEstimator F : clear implicits.

(** The estimator as the program runs it. *)
Definition m_alpha : double := float_decimal 1 1.
Definition mark_received (echo now : Z) (e : LatencyEstimator double) : LatencyEstimator double :=
  markReceived m_alpha (float_sub (of_Z 1) m_alpha) echo now e.

(** ** Durations *)

(** [Duration]: a number of milliseconds. *)
Record Duration := { m_duration_ms : double }.

(** [static_cast<std::uint64_t>] of a double: not defined when the value is
    out of range. *)
Definition to_u64 (x : double) : option Z :=
  let z := trunc x in
  if finite x && (0 <=? z) && (z <? 2 ^ 64) then Some z else None.

Definition fromMSec (ms : Z) : Duration := {| m_duration_ms := of_Z ms |}.
Definition fromUSec (us : Z) : Duration := {| m_duration_ms := div (of_Z us) (of_Z 1000) |}.
Definition fromSec (sec : double) : Duration := {| m_duration_ms := mul sec (of_Z 1000) |}.
Definition toSec (d : Duration) : double := div (m_duration_ms d) (of_Z 1000).
Definition toMSec (d : Duration) : double := m_duration_ms d.
Definition toUSec (d : Duration) : option Z := to_u64 (mul (m_duration_ms d) (of_Z 1000)).

(** The operators [+] and [-] go through [fromMSec], whose argument is an
    integer; [+=] and [-=] do not. *)
Definition duration_add (d1 d2 : Duration) : option Duration :=
  fromMSec <$> to_u64 (add (m_duration_ms d1) (m_duration_ms d2)).
Definition duration_sub (d1 d2 : Duration) : option Duration :=
  fromMSec <$> to_u64 (sub (m_duration_ms d1) (m_duration_ms d2)).
Definition duration_add_assign (d1 d2 : Duration) : Duration :=
  {| m_duration_ms := add (m_duration_ms d1) (m_duration_ms d2) |}.
Definition duration_sub_assign (d1 d2 : Duration) : Duration :=
  {| m_duration_ms := sub (m_duration_ms d1) (m_duration_ms d2) |}.
Definition duration_ltb (d1 d2 : Duration) : bool := ltb (m_duration_ms d1) (m_duration_ms d2).
Definition duration_leb (d1 d2 : Duration) : bool := leb (m_duration_ms d1) (m_duration_ms d2).
Definition duration_eqb (d1 d2 : Duration) : bool := SFeqb (m_duration_ms d1) (m_duration_ms d2).

(** ** What an arm's control reports *)

(** The members of [ArmControl], of an arm with the period [m_fw_dt_us] and the
    estimator, if there is one; [now] is the clock. *)
Definition firmwarePeriod (arm : option Z) : Duration := fromUSec (default 2000 arm).
Definition stateAge (arm : option (LatencyEstimator double)) (now : Z) : Duration :=
  match arm with None => fromMSec 0 | Some e => fromUSec (stateAgeUs now e) end.
Definition estimatedLatency (arm : option (LatencyEstimator double)) : option Duration :=
  match arm with
  | None => Some (fromMSec 0)
  | Some e => fromUSec <$> to_u64 (mul (estimatedLatencyMs e) (of_Z 1000))
  end.
Definition control_receiveJitterUs (arm : option (LatencyEstimator double)) : double :=
  match arm with None => of_Z 0 | Some e => receiveJitterUs e end.
Definition control_receiveHz (arm : option (LatencyEstimator double)) : double :=
  match arm with None => of_Z 0 | Some e => receiveHz e end.

(** Adding durations with [+] drops the fraction of a millisecond that [+=]
    keeps. *)
Example add_drops_fraction :
  let d := fromUSec 500 in
  duration_add d d = Some (fromMSec 1) /\
  duration_add (fromUSec 600) (fromUSec 600) = Some (fromMSec 1) /\
  toUSec (duration_add_assign (fromUSec 600) (fromUSec 600)) = Some 1200.
Proof. by vm_compute. Qed.

(** ** The window

    What the ring buffer holds, from the oldest interval to the newest. *)
Definition window {F} (e : LatencyEstimator F) : list Z :=
  if m_window_count e <? g_window_size then take (Z.to_nat (m_window_count e)) (m_intervals e)
  else drop (Z.to_nat (m_window_idx e)) (m_intervals e) ++ take (Z.to_nat (m_window_idx e)) (m_intervals e).

(** The last [n] elements of a list. *)
Definition last_n {A} (n : nat) (l : list A) : list A := drop (length l - n) l.

(** The intervals between receptions, the previous one being at [prev]; a
    reception at time 0 counts as none. *)
Fixpoint deltas (prev : Z) (nows : list Z) : list Z :=
  match nows with
  | [] => []
  | now :: nows => (if prev >? 0 then [u64 (now - prev)] else []) ++ deltas now nows
  end.

Lemma deltas_nonneg nows : forall prev, Forall (fun x => 0 <= x) (deltas prev nows).
Proof.
  induction nows as [|now nows IH]; intros prev; [constructor|]. cbn. apply Forall_app. split; [|apply IH].
  destruct (prev >? 0); [|constructor]. constructor; [|constructor]. by apply Z.mod_pos_bound.
Qed.

Lemma last_n_all {A} n (l : list A) : (length l <= n)%nat -> last_n n l = l.
Proof. intros Hl. unfold last_n. by replace (length l - n)%nat with 0%nat by lia. Qed.

Lemma last_n_app {A} n (l1 l2 : list A) : last_n n (last_n n l1 ++ l2) = last_n n (l1 ++ l2).
Proof.
  unfold last_n. rewrite !length_app, length_drop. destruct (Nat.le_ge_cases (length l1) n).
  - by replace (length l1 - n)%nat with 0%nat by lia; rewrite Nat.sub_0_r.
  - rewrite !drop_app, drop_drop, length_drop. f_equal; f_equal; lia.
Qed.

Section window.
Context {F : Type} `{Arith F}.
Variable alpha complement : F.

Record window_ok (e : LatencyEstimator F) : Prop := {
  ok_length : length (m_intervals e) = 64%nat;
  ok_count : 0 <= m_window_count e <= 64;
  ok_idx : 0 <= m_window_idx e < 64;
  ok_growing : m_window_count e < 64 -> m_window_idx e = m_window_count e;
  ok_jitter : m_jitter_us e = if m_window_count e >=? 4
    then jitter_of (take (Z.to_nat (m_window_count e)) (m_intervals e)) else of_Z 0
}.

Lemma window0 : window_ok estimator0.
Proof. split; done || (cbn; lia). Qed.

(** What the two other parts of [markReceived] leave alone. *)
Lemma window_set_times recv prev (e : LatencyEstimator F) :
  window_ok e -> window_ok (set_times recv prev e).
Proof. intros [H1 H2 H3 H4 H5]. by split. Qed.
Lemma window_mark_rtt echo now (e : LatencyEstimator F) :
  window_ok e -> window_ok (mark_rtt alpha complement echo now e) /\
  window (mark_rtt alpha complement echo now e) = window e /\
  m_prev_recv_time_us (mark_rtt alpha complement echo now e) = m_prev_recv_time_us e /\
  m_window_count (mark_rtt alpha complement echo now e) = m_window_count e.
Proof. intros Hok. unfold mark_rtt. destruct (echo >? 0); [|done]. split; [destruct Hok; by split|done]. Qed.

Lemma window_length (e : LatencyEstimator F) : window_ok e -> length (window e) = Z.to_nat (m_window_count e).
Proof.
  intros [Hl Hc Hi Hg _]. unfold window, g_window_size. destruct (Z.ltb_spec (m_window_count e) 64).
  - rewrite length_take. lia.
  - rewrite length_app, length_drop, length_take. lia.
Qed.

(** An interval is pushed; the oldest goes when the window is full. *)
Lemma window_push now (e : LatencyEstimator F) :
  window_ok e -> 0 < m_prev_recv_time_us e ->
  window_ok (mark_interval now e) /\
  window (mark_interval now e) = last_n 64 (window e ++ [u64 (now - m_prev_recv_time_us e)]).
Proof.
  intros Hok Hp. pose proof (window_length e Hok) as Hwl. destruct Hok as [Hl Hc Hi Hg Hj].
  unfold mark_interval. replace (m_prev_recv_time_us e >? 0) with true by (symmetry; lia).
  set (delta := u64 _). unfold g_window_size.
  destruct (Z.ltb_spec (m_window_count e) 64) as [Hlt|Hge].
  - specialize (Hg Hlt). split.
    + split; cbn; [by rewrite length_insert|lia| | |].
      * apply Z.mod_pos_bound. lia.
      * intros Hlt'. rewrite Hg. apply Z.mod_small. lia.
      * destruct (_ + 1 >=? 4) eqn:Hq; [done|]. rewrite Hj. destruct (m_window_count e >=? 4) eqn:Hq'; [lia|done].
    + unfold window at 1. cbn. unfold g_window_size.
      assert (window e = take (Z.to_nat (m_window_count e)) (m_intervals e)) as Hw
        by (unfold window, g_window_size; by destruct (Z.ltb_spec (m_window_count e) 64); [|lia]).
      rewrite Hw in *.
      assert (take (Z.to_nat (m_window_count e + 1)) (<[Z.to_nat (m_window_idx e):=delta]> (m_intervals e)) =
        take (Z.to_nat (m_window_count e)) (m_intervals e) ++ [delta]) as Htake.
      { rewrite Hg. replace (Z.to_nat (m_window_count e + 1)) with (S (Z.to_nat (m_window_count e))) by lia.
        rewrite (take_S_r _ _ delta) by (apply list_lookup_insert_eq; lia).
        by rewrite take_insert_ge by lia. }
      rewrite last_n_all by (rewrite length_app, Hwl; cbn; lia).
      destruct (Z.ltb_spec (m_window_count e + 1) 64); [done|].
      assert (m_window_count e = 63) as Hc63 by lia. rewrite <- Htake, Hg, Hc63. cbn.
      rewrite app_nil_r, firstn_all2; [done|]. rewrite length_insert. lia.
  - assert (m_window_count e = 64) as Hc64 by lia.
    assert (exists i, (i < 64)%nat /\ Z.to_nat (m_window_idx e) = i /\
      Z.to_nat ((m_window_idx e + 1) mod 64) = if decide (i = 63)%nat then 0%nat else S i) as (i & Hi' & Hidx & Hnext).
    { exists (Z.to_nat (m_window_idx e)). split; [lia|]. split; [done|].
      destruct (decide (Z.to_nat (m_window_idx e) = 63%nat)).
      - by replace (m_window_idx e) with 63 by lia.
      - rewrite Z.mod_small by lia. lia. }
    split.
    + split; cbn; [by rewrite length_insert|lia| |lia|by destruct (_ >=? 4) eqn:Hq; [|lia]].
      apply Z.mod_pos_bound. lia.
    + unfold window, g_window_size. cbn. rewrite Hc64. cbn [Z.ltb Z.compare].
      change (64 <? 64) with false. cbv iota. rewrite Hidx, Hnext.
      set (l := m_intervals e) in *.
      unfold last_n. rewrite !length_app, length_drop, length_take, Hl. cbn [length].
      replace (64 - i + (i `min` 64) + 1 - 64)%nat with 1%nat by lia.
      destruct (lookup_lt_is_Some_2 l i ltac:(lia)) as [x Hx].
      rewrite (drop_S l x i Hx), <- !app_comm_cons. change (drop 1 (x :: ?r)) with (drop 0 r).
      rewrite drop_0. destruct (decide (i = 63)%nat) as [->|Hne].
      * rewrite drop_0, app_nil_r, drop_ge by lia. cbn [app].
        rewrite <- (take_ge (<[63%nat:=delta]> l) 64) by (rewrite length_insert; lia).
        rewrite (take_S_r _ 63 delta) by (apply list_lookup_insert_eq; lia).
        by rewrite take_insert_ge by lia.
      * rewrite drop_insert_lt by lia. rewrite (take_S_r _ i delta) by (apply list_lookup_insert_eq; lia).
        rewrite take_insert_ge by lia. by rewrite app_assoc.
Qed.

Lemma mark_interval_prev now (e : LatencyEstimator F) :
  m_prev_recv_time_us (mark_interval now e) = m_prev_recv_time_us e.
Proof. unfold mark_interval. by destruct (_ >? 0). Qed.

(** A reception. *)
Lemma window_mark echo now (e : LatencyEstimator F) :
  window_ok e ->
  window_ok (markReceived alpha complement echo now e) /\
  m_prev_recv_time_us (markReceived alpha complement echo now e) = now /\
  window (markReceived alpha complement echo now e) =
    last_n 64 (window e ++ if m_prev_recv_time_us e >? 0 then [u64 (now - m_prev_recv_time_us e)] else []).
Proof.
  intros Hok. unfold markReceived.
  set (e1 := set_times now (m_prev_recv_time_us e) e).
  assert (window_ok e1) as Hok1 by by apply window_set_times.
  assert (window_ok (mark_interval now e1) /\ window (mark_interval now e1) =
    last_n 64 (window e ++ if m_prev_recv_time_us e >? 0 then [u64 (now - m_prev_recv_time_us e)] else [])) as [H1 H2].
  { destruct (m_prev_recv_time_us e >? 0) eqn:Hp.
    - apply (window_push now e1 Hok1). apply Z.gtb_lt, Hp.
    - unfold mark_interval. replace (m_prev_recv_time_us e1) with (m_prev_recv_time_us e) by done. rewrite Hp.
      split; [done|]. rewrite app_nil_r, last_n_all; [done|]. rewrite window_length by done. destruct Hok. lia. }
  destruct (window_mark_rtt echo now (set_times now now (mark_interval now e1))) as (H3 & H4 & H5 & _);
    [by apply window_set_times|].
  split; [done|]. split; [by rewrite H5|]. by rewrite H4.
Qed.

(** Receptions, with their echoes. *)
Definition receptions (l : list (Z * Z)) (e : LatencyEstimator F) : LatencyEstimator F :=
  fold_left (fun e '(echo, now) => markReceived alpha complement echo now e) l e.

Lemma window_receptions l : forall e : LatencyEstimator F,
  window_ok e ->
  window_ok (receptions l e) /\
  window (receptions l e) = last_n 64 (window e ++ deltas (m_prev_recv_time_us e) (map snd l)).
Proof.
  induction l as [|[echo now] l IH]; intros e Hok.
  - split; [done|]. cbn. rewrite app_nil_r, last_n_all; [done|]. rewrite window_length by done. destruct Hok. lia.
  - destruct (window_mark echo now e Hok) as (H1 & H2 & H3). destruct (IH _ H1) as [H4 H5].
    change (receptions ((echo, now) :: l) e) with (receptions l (markReceived alpha complement echo now e)).
    split; [done|]. rewrite H5, H2, H3, last_n_app. cbn [map snd deltas]. by rewrite app_assoc.
Qed.
End window.

(** ** The statistics, over the real numbers *)

Section statistics.
Local Open Scope R_scope.

(** The mean and the standard deviation of a list of numbers. *)
Definition total (l : list R) : R := foldr Rplus 0 l.
Definition mean (l : list R) : R := total l / INR (length l).
Definition deviation (l : list R) : R :=
  R_sqrt.sqrt (total (map (fun x => (x - mean l) * (x - mean l)) l) / INR (length l)).

Lemma fold_total {A} (f : A -> R) (l : list A) : forall s,
  fold_left (fun s x => s + f x) l s = s + total (map f l).
Proof.
  induction l as [|x l IH]; intros s; cbn; [lra|]. rewrite IH. unfold total. cbn. lra.
Qed.

Lemma total_perm l1 l2 : l1 ≡ₚ l2 -> total l1 = total l2.
Proof. unfold total. induction 1; cbn; lra. Qed.

Lemma mean_perm l1 l2 : l1 ≡ₚ l2 -> mean l1 = mean l2.
Proof. intros Hp. unfold mean. by rewrite (total_perm _ _ Hp), (Permutation_length Hp). Qed.

Lemma deviation_perm l1 l2 : l1 ≡ₚ l2 -> deviation l1 = deviation l2.
Proof.
  intros Hp. unfold deviation. rewrite (mean_perm _ _ Hp), (Permutation_length Hp). do 2 f_equal.
  by apply total_perm, Permutation_map.
Qed.

Lemma jitter_deviation l : jitter_of l = deviation (map IZR l).
Proof.
  unfold jitter_of, deviation, mean, sum_squares, sum_intervals. cbn [add mul div sub sqrt of_Z real_arith].
  rewrite !fold_total, !length_map, !Rplus_0_l, <- INR_IZR_INZ, map_map. done.
Qed.

(** The window is a rearrangement of the part of the buffer that is in use. *)
Lemma window_perm {F} `{Arith F} (e : LatencyEstimator F) : window_ok e ->
  take (Z.to_nat (m_window_count e)) (m_intervals e) ≡ₚ window e.
Proof.
  intros [Hl Hc Hi Hg _]. unfold window, g_window_size. destruct (Z.ltb_spec (m_window_count e) 64); [done|].
  rewrite take_ge by lia. rewrite <- (take_drop (Z.to_nat (m_window_idx e)) (m_intervals e)) at 1.
  apply Permutation_app_comm.
Qed.

Lemma sum_u64 l : forall s, Forall (fun x => (0 <= x)%Z) l -> (0 <= s)%Z ->
  (s + foldr Z.add 0 l < 2 ^ 64)%Z ->
  fold_left (fun s x => u64 (s + x)%Z) l s = (s + foldr Z.add 0 l)%Z.
Proof.
  induction l as [|x l IH]; intros s Hl Hs Hlt; cbn [fold_left foldr] in *; [lia|].
  apply Forall_cons_1 in Hl as [Hx Hl].
  assert (0 <= foldr Z.add 0 l)%Z by (clear - Hl; induction Hl; cbn; lia).
  rewrite (wrap_id 64 (s + x)) by (split; lia). rewrite IH; [lia|done|lia|lia].
Qed.

Lemma total_Z l : total (map IZR l) = IZR (foldr Z.add 0%Z l).
Proof. induction l as [|x l IH]; [done|]. unfold total in *. cbn. by rewrite IH, plus_IZR. Qed.

Lemma sum_perm (l1 l2 : list Z) : l1 ≡ₚ l2 -> foldr Z.add 0%Z l1 = foldr Z.add 0%Z l2.
Proof. induction 1; cbn; lia. Qed.

Variable alpha : R.

(** What is reported is of the last 64 intervals.  After any receptions, the
    estimator holds the last 64 intervals between them (of those that did not
    come after a reception at time 0); with four or more, the jitter is exactly
    their standard deviation and, unless their sum overflows 64 bits, the rate is
    the inverse of their mean, or 0 if that is 0; with fewer, both are 0. *)
Theorem estimator_exact l :
  let e := receptions alpha (1 - alpha) l estimator0 in
  let w := last_n 64 (deltas 0 (map snd l)) in
  window e = w /\
  ((length w < 4)%nat -> receiveJitterUs e = 0 /\ receiveHz e = 0) /\
  ((4 <= length w)%nat ->
     receiveJitterUs e = deviation (map IZR w) /\
     ((foldr Z.add 0 w < 2 ^ 64)%Z ->
      receiveHz e = if Req_dec_T (mean (map IZR w)) 0 then 0 else 1000000 / mean (map IZR w))).
Proof.
  intros e w. destruct (window_receptions alpha (1 - alpha) l estimator0 window0) as [Hok Hw].
  fold e in Hok, Hw. change (window estimator0 ++ deltas _ (map snd l)) with (deltas 0 (map snd l)) in Hw. fold w in Hw.
  pose proof (window_length e Hok) as Hlen. rewrite Hw in Hlen.
  pose proof (window_perm e Hok) as Hperm. rewrite Hw in Hperm.
  split; [done|]. split.
  - intros Hlt. assert (m_window_count e < 4)%Z as Hc by (destruct Hok; lia). split.
    + unfold receiveJitterUs. rewrite (ok_jitter _ Hok). by destruct (_ >=? 4)%Z eqn:?; [lia|].
    + unfold receiveHz. by destruct (Z.ltb_spec (m_window_count e) 4); [|lia].
  - intros Hge. assert (4 <= m_window_count e)%Z as Hc by (destruct Hok; lia). split.
    + unfold receiveJitterUs. rewrite (ok_jitter _ Hok). destruct (_ >=? 4)%Z eqn:?; [|lia].
      rewrite jitter_deviation. apply deviation_perm. by rewrite Hperm.
    + intros Hsum. unfold receiveHz. destruct (Z.ltb_spec (m_window_count e) 4); [lia|].
      assert (Forall (fun x => (0 <= x)%Z) w) as Hpos.
      { apply Forall_drop, deltas_nonneg. }
      rewrite sum_u64; [|by rewrite Hperm|lia|by rewrite (sum_perm _ _ Hperm)].
      rewrite Z.add_0_l, (sum_perm _ _ Hperm).
      assert (mean (map IZR w) = IZR (foldr Z.add 0 w)%Z / IZR (m_window_count e)) as Hmean.
      { unfold mean. rewrite total_Z, length_map, Hlen, INR_IZR_INZ. do 2 f_equal. lia. }
      cbn [div of_Z real_arith]. rewrite <- Hmean.
      assert (0 <= mean (map IZR w)) as Hm.
      { rewrite Hmean. apply Rle_mult_inv_pos; [|apply (IZR_lt 0); lia]. apply (IZR_le 0).
        clear - Hpos. induction Hpos; cbn; lia. }
      destruct (leb _ _) eqn:Hle.
      * apply R_leb_true in Hle. cbn in Hle. by destruct (Req_dec_T (mean (map IZR w)) 0); [|lra].
      * destruct (Req_dec_T (mean (map IZR w)) 0) as [H0|]; [|done].
        assert (leb (mean (map IZR w)) 0 = true) by (apply R_leb_true; lra). cbn [of_Z real_arith] in Hle. congruence.
Qed.

Lemma mix_between a x y low high :
  0 <= a <= 1 -> low <= x <= high -> low <= y <= high -> low <= a * x + (1 - a) * y <= high.
Proof. intros Ha Hx Hy. split; nra. Qed.

(** The reported latency stays among the round trips measured.  When every
    round trip of the receptions that carried an echo lies between two bounds,
    and there was one, the estimate lies between them. *)
Theorem latency_bounded l low high :
  0 <= alpha <= 1 ->
  (forall echo now, In (echo, now) l -> (0 < echo)%Z -> low <= rtt_ms echo now <= high) ->
  (exists echo now, In (echo, now) l /\ (0 < echo)%Z) ->
  low <= estimatedLatencyMs (receptions alpha (1 - alpha) l estimator0) <= high.
Proof.
  intros Ha Hb Hex. unfold estimatedLatencyMs.
  assert (forall e, (m_has_valid_rtt e = true -> low <= m_smoothed_rtt_ms e <= high) ->
    (exists echo now, In (echo, now) l /\ (0 < echo)%Z) \/ m_has_valid_rtt e = true ->
    low <= m_smoothed_rtt_ms (receptions alpha (1 - alpha) l e) <= high) as Hall; [|by apply Hall; [|left]].
  clear Hex. induction l as [|[echo now] l IH]; intros e He Hor.
  - destruct Hor as [(? & ? & [] & _)|Hv]. by apply He.
  - change (receptions alpha (1 - alpha) ((echo, now) :: l) e)
      with (receptions alpha (1 - alpha) l (markReceived alpha (1 - alpha) echo now e)).
    assert (m_has_valid_rtt (mark_interval now (set_times now (m_prev_recv_time_us e) e)) = m_has_valid_rtt e /\
      m_smoothed_rtt_ms (mark_interval now (set_times now (m_prev_recv_time_us e) e)) = m_smoothed_rtt_ms e) as [Hv Hs]
      by (unfold mark_interval; by destruct (_ >? 0)%Z).
    apply IH; clear IH.
    + intros echo' now' Hin. apply Hb. by right.
    + unfold markReceived, mark_rtt. destruct (Z.gtb_spec echo 0); cbn; rewrite ?Hv, ?Hs; [|done].
      intros _. specialize (Hb echo now (or_introl eq_refl) ltac:(lia)).
      destruct (m_has_valid_rtt e); cbn; [|done]. specialize (He eq_refl). by apply mix_between.
    + unfold markReceived, mark_rtt. destruct (Z.gtb_spec echo 0); cbn; [by right|].
      rewrite Hv. destruct Hor as [(e' & n' & [[= <- <-]|Hin] & Hpos)|Hor]; [lia| |by right].
      left. by exists e', n'.
Qed.
End statistics.

(** ** A sample run *)

Definition sample_receptions : list (Z * Z) :=
  [(0, 1000); (500, 3000); (2900, 5000); (0, 7000); (7500, 9500)].

Lemma latency_bounded_witness :
  (1 <= estimatedLatencyMs (receptions (1 / 10) (1 - 1 / 10) sample_receptions estimator0) <= 5 / 2)%R.
Proof.
  apply latency_bounded; [lra| |].
  - intros echo now Hin Hpos. unfold rtt_ms. cbn [div of_Z real_arith].
    destruct Hin as [[= <- <-]|[[= <- <-]|[[= <- <-]|[[= <- <-]|[[= <- <-]|[]]]]]]; try lia;
      cbv [wrap]; [change ((3000 - 500) mod 2 ^ 64)%Z with 2500%Z|change ((5000 - 2900) mod 2 ^ 64)%Z with 2100%Z|
        change ((9500 - 7500) mod 2 ^ 64)%Z with 2000%Z]; lra.
  - exists 500, 3000. split; [|lia]. right. by left.
Defined.

(** The same receptions with the arithmetic of the program. *)
Example estimator_runs :
  let e := fold_left (fun e '(echo, now) => mark_received echo now e) sample_receptions estimator0 in
  window e = [2000; 2000; 2000; 2500] /\ receiveHz e = div (of_Z 1000000) (of_Z 2125).
Proof. by vm_compute. Qed.

Lemma estimator_exact_witness :
  let e := receptions (1 / 10)%R (1 - 1 / 10)%R sample_receptions estimator0 in
  window e = [2000; 2000; 2000; 2500] /\ receiveJitterUs e = deviation (map IZR [2000; 2000; 2000; 2500]).
Proof.
  destruct (estimator_exact (1 / 10)%R sample_receptions) as (Hw & _ & Hj).
  assert (last_n 64 (deltas 0 (map snd sample_receptions)) = [2000; 2000; 2000; 2500]) as Hd by (by vm_compute).
  cbv zeta in *. rewrite Hd in Hw, Hj. split; [exact Hw|]. apply Hj. cbn. lia.
Defined.

(** ** Latest-value cells

    [include/florid/detail/LatestValue.hpp], the whole file: a cell with one
    publisher and one reader over the mailbox of the link library, whose
    functions are the calls.  A value is copied in and out whole. *)

Section cell.
Context {T : Type}.

(** What the library answers: a status, and a claim or a view with it. *)
Inductive cell_status := CELL_OK | CELL_NO_DATA | CELL_ERROR (code : Z).
#[global] Instance cell_status_eq_dec : EqDecision cell_status.
Proof. solve_decision. Defined.

Inductive cell_call : Type -> Type :=
| CellInit : cell_call cell_status
| WriteClaim : cell_call cell_status
| WritePublish (value : T) : cell_call cell_status  (* the claimed slot, as filled *)
| ReadAcquire : cell_call (cell_status * option T)  (* the value of the view *)
| ReadRelease : cell_call cell_status.

(** The constructor; [false]: it throws. *)
Definition new_cell : prog cell_call bool :=
  result ← call CellInit; mret (bool_decide (result = CELL_OK)).

Definition cell_publish (value : T) : prog cell_call cell_status :=
  result ← call WriteClaim;
  if negb (bool_decide (result = CELL_OK)) then mret result
  else call (WritePublish value).

(** [read]: the status, and the caller's value after it. *)
Definition cell_read (cache : T) : prog cell_call (cell_status * T) :=
  '(result, view) ← call ReadAcquire;
  if negb (bool_decide (result = CELL_OK)) then mret (result, cache)
  else
    let value := default cache view in
    released ← call ReadRelease;
    mret (released, value).

(** What opens and what closes an access. *)
Definition opens (ev : event cell_call) : bool :=
  match ev with
  | @Event _ R c a =>
      match c in cell_call R return R -> bool with
      | WriteClaim => fun r => bool_decide (r = CELL_OK)
      | ReadAcquire => fun '(r, _) => bool_decide (r = CELL_OK)
      | _ => fun _ => false
      end a
  end.
Definition closes (ev : event cell_call) : bool :=
  match ev with
  | @Event _ R c a => match c with WritePublish _ | ReadRelease => true | _ => false end
  end.

(** Every access that is granted is ended once, by publishing exactly the
    caller's value or by releasing the view. *)
Lemma publish_balanced value l r :
  runs (cell_publish value) l r ->
  count_calls closes l = count_calls opens l /\
  (forall v a, In (Event (WritePublish v) a) l -> v = value /\ a = r).
Proof.
  unfold cell_publish. intros Hr. step_call Hr claimed. destruct (decide (claimed = CELL_OK)) as [->|Hne].
  - cbn in Hr. step_call Hr published. destruct Hr as [-> <-].
    split; [done|]. intros v a [Heq|[Heq|[]]]; [done|].
    pose proof (f_equal (fun ev : event cell_call => match ev with @Event _ R c x =>
      match c in cell_call R return R -> option (T * cell_status) with WritePublish v => fun x => Some (v, x) | _ => fun _ => None end x end) Heq) as Hv.
    by injection Hv as -> ->.
  - rewrite bool_decide_false in Hr by done. destruct Hr as [-> ->]. split; [cbn; by rewrite bool_decide_false|].
    by intros v a [Heq|[]].
Qed.

Lemma read_balanced cache l r value :
  runs (cell_read cache) l (r, value) ->
  count_calls closes l = count_calls opens l /\
  (r = CELL_NO_DATA -> count_calls opens l = 0%nat -> value = cache).
Proof.
  unfold cell_read. intros Hr. step_call Hr acquired. destruct acquired as [result view].
  destruct (decide (result = CELL_OK)) as [->|Hne].
  - cbn in Hr. step_call Hr released. apply runs_ret in Hr as [-> [= <- <-]]. by split.
  - rewrite bool_decide_false in Hr by done. destruct Hr as [-> [= <- <-]]. split; [cbn; by rewrite bool_decide_false|done].
Qed.
End cell.
