(* ===== verification/MotorRegisters.v ===== *)
(** * Motor registers

    [include/florid/MotorRegisters.hpp], the whole file: the settings of a motor
    as functions over [Arm::readMotorRegister] and [writeMotorRegister], which
    are those of [ArmImpl.v].  A [float] is its bit pattern. *)

From stdpp Require Import strings gmap.
From S2P Require Import Prelude DeviceTypes Endpoint EndpointOps EndpointCalls Prog ArmImpl.

(** [MotorRegister], and the number of each. *)
Inductive MotorRegister :=
| TorqueConstant
| GearEfficiency
| CurrentLoopBandwidth
| SpeedLoopKp
| SpeedLoopKi
| PositionLoopKp
| PositionLoopKi
| SpeedLoopDamping
| SpeedLoopFilterBW
| CurrentEnhanceFactor
| VelocityEnhanceFactor
| VoltageUnder
| VoltageOver
| TemperatureLimit
| OvercurrentLimit
| Acceleration
| Deceleration
| MaxSpeed
| PositionMax
| VelocityMax
| TorqueMax
| DampingCoefficient
| Inertia
| HardwareVersion
| SoftwareVersion
| PolePairs
| PhaseResistance
| PhaseInductance
| FluxLinkage
| GearRatio
| SubVersion
| MotorPosition
| OutputPosition.
#[global] Instance MotorRegister_eq_dec : EqDecision MotorRegister.
Proof. solve_decision. Defined.

Definition register_id (r : MotorRegister) : Z :=
  match r with
  | TorqueConstant => 1
  | GearEfficiency => 30
  | CurrentLoopBandwidth => 24
  | SpeedLoopKp => 25
  | SpeedLoopKi => 26
  | PositionLoopKp => 27
  | PositionLoopKi => 28
  | SpeedLoopDamping => 31
  | SpeedLoopFilterBW => 32
  | CurrentEnhanceFactor => 33
  | VelocityEnhanceFactor => 34
  | VoltageUnder => 0
  | VoltageOver => 29
  | TemperatureLimit => 2
  | OvercurrentLimit => 3
  | Acceleration => 4
  | Deceleration => 5
  | MaxSpeed => 6
  | PositionMax => 21
  | VelocityMax => 22
  | TorqueMax => 23
  | DampingCoefficient => 11
  | Inertia => 12
  | HardwareVersion => 13
  | SoftwareVersion => 14
  | PolePairs => 16
  | PhaseResistance => 17
  | PhaseInductance => 18
  | FluxLinkage => 19
  | GearRatio => 20
  | SubVersion => 36
  | MotorPosition => 80
  | OutputPosition => 81
  end.

Module Motor.

(** [Arm::readMotorRegister] and [writeMotorRegister]; C's [&&] between calls. *)
Definition read (joint : Z) (r : MotorRegister) : arm (option Z) := arm_readMotorRegister joint (register_id r).
Definition write (joint : Z) (r : MotorRegister) (value : Z) : arm bool :=
  arm_writeMotorRegister joint (register_id r) value.
Definition and_then (p q : arm bool) : arm bool := ok ← p; if ok : bool then q else mret false.
Infix "&&!" := and_then (at level 40, left associativity).

(** [s_readU32]: the bits of the [float] that was read. *)
Definition s_readU32 (joint : Z) (r : MotorRegister) : arm (option Z) :=
  value ← read joint r;
  mret match value with None => None | Some bits => Some (u32 bits) end.

Definition setSpeedLoopGains (joint kp ki : Z) : arm bool :=
  write joint SpeedLoopKp kp &&! write joint SpeedLoopKi ki.
Definition getSpeedLoopGains (joint : Z) : arm (option Z * option Z) :=
  first ← read joint SpeedLoopKp;
  second ← read joint SpeedLoopKi;
  mret (first, second).
Definition setPositionLoopGains (joint kp ki : Z) : arm bool :=
  write joint PositionLoopKp kp &&! write joint PositionLoopKi ki.
Definition getPositionLoopGains (joint : Z) : arm (option Z * option Z) :=
  first ← read joint PositionLoopKp;
  second ← read joint PositionLoopKi;
  mret (first, second).
Definition setSpeedLoopFilter (joint bw : Z) : arm bool :=
  write joint SpeedLoopFilterBW bw.
Definition getSpeedLoopFilter (joint : Z) : arm (option Z) := read joint SpeedLoopFilterBW.
Definition setSpeedLoopDamping (joint deta : Z) : arm bool :=
  write joint SpeedLoopDamping deta.
Definition getSpeedLoopDamping (joint : Z) : arm (option Z) := read joint SpeedLoopDamping.
Definition setCurrentLoopBandwidth (joint bw : Z) : arm bool :=
  write joint CurrentLoopBandwidth bw.
Definition getCurrentLoopBandwidth (joint : Z) : arm (option Z) := read joint CurrentLoopBandwidth.
Definition setCurrentEnhanceFactor (joint c1 : Z) : arm bool :=
  write joint CurrentEnhanceFactor c1.
Definition getCurrentEnhanceFactor (joint : Z) : arm (option Z) := read joint CurrentEnhanceFactor.
Definition setVelocityEnhanceFactor (joint c1 : Z) : arm bool :=
  write joint VelocityEnhanceFactor c1.
Definition getVelocityEnhanceFactor (joint : Z) : arm (option Z) := read joint VelocityEnhanceFactor.
Definition setVoltageLimits (joint under over : Z) : arm bool :=
  write joint VoltageUnder under &&! write joint VoltageOver over.
Definition getVoltageLimits (joint : Z) : arm (option Z * option Z) :=
  first ← read joint VoltageUnder;
  second ← read joint VoltageOver;
  mret (first, second).
Definition setTemperatureLimit (joint ot : Z) : arm bool :=
  write joint TemperatureLimit ot.
Definition getTemperatureLimit (joint : Z) : arm (option Z) := read joint TemperatureLimit.
Definition setOvercurrentLimit (joint oc : Z) : arm bool :=
  write joint OvercurrentLimit oc.
Definition getOvercurrentLimit (joint : Z) : arm (option Z) := read joint OvercurrentLimit.
Definition setAcceleration (joint acc : Z) : arm bool :=
  write joint Acceleration acc.
Definition getAcceleration (joint : Z) : arm (option Z) := read joint Acceleration.
Definition setDeceleration (joint dec : Z) : arm bool :=
  write joint Deceleration dec.
Definition getDeceleration (joint : Z) : arm (option Z) := read joint Deceleration.
Definition setMaxSpeed (joint spd : Z) : arm bool :=
  write joint MaxSpeed spd.
Definition getMaxSpeed (joint : Z) : arm (option Z) := read joint MaxSpeed.
Definition setMappingRanges (joint pmax vmax tmax : Z) : arm bool :=
  write joint PositionMax pmax &&! write joint VelocityMax vmax &&! write joint TorqueMax tmax.
Definition getMappingRanges (joint : Z) : arm (option Z * option Z * option Z) :=
  first ← read joint PositionMax;
  second ← read joint VelocityMax;
  third ← read joint TorqueMax;
  mret (first, second, third).
Definition setTorqueConstant (joint kt : Z) : arm bool :=
  write joint TorqueConstant kt.
Definition getTorqueConstant (joint : Z) : arm (option Z) := read joint TorqueConstant.
Definition setGearEfficiency (joint gref : Z) : arm bool :=
  write joint GearEfficiency gref.
Definition getGearEfficiency (joint : Z) : arm (option Z) := read joint GearEfficiency.
Definition getDampingCoefficient (joint : Z) : arm (option Z) := read joint DampingCoefficient.
Definition getInertia (joint : Z) : arm (option Z) := read joint Inertia.
Definition getHardwareVersion (joint : Z) : arm (option Z) := s_readU32 joint HardwareVersion.
Definition getSoftwareVersion (joint : Z) : arm (option Z) := s_readU32 joint SoftwareVersion.
Definition getPolePairs (joint : Z) : arm (option Z) := s_readU32 joint PolePairs.
Definition getPhaseResistance (joint : Z) : arm (option Z) := read joint PhaseResistance.
Definition getPhaseInductance (joint : Z) : arm (option Z) := read joint PhaseInductance.
Definition getFluxLinkage (joint : Z) : arm (option Z) := read joint FluxLinkage.
Definition getGearRatio (joint : Z) : arm (option Z) := read joint GearRatio.
Definition getSubVersion (joint : Z) : arm (option Z) := s_readU32 joint SubVersion.
Definition getMotorPosition (joint : Z) : arm (option Z) := read joint MotorPosition.
Definition getOutputPosition (joint : Z) : arm (option Z) := read joint OutputPosition.
Definition setZeroPoint (joint : Z) : arm bool := ArmImpl.setZeroPoint joint.
Definition storeParameters (joint : Z) : arm bool := ArmImpl.storeParameters joint.

Create HintDb motor.
#[global] Hint Unfold and_then setSpeedLoopGains getSpeedLoopGains setPositionLoopGains getPositionLoopGains setSpeedLoopFilter getSpeedLoopFilter setSpeedLoopDamping getSpeedLoopDamping setCurrentLoopBandwidth getCurrentLoopBandwidth setCurrentEnhanceFactor getCurrentEnhanceFactor setVelocityEnhanceFactor getVelocityEnhanceFactor setVoltageLimits getVoltageLimits setTemperatureLimit getTemperatureLimit setOvercurrentLimit getOvercurrentLimit setAcceleration getAcceleration setDeceleration getDeceleration setMaxSpeed getMaxSpeed setMappingRanges getMappingRanges setTorqueConstant getTorqueConstant setGearEfficiency getGearEfficiency getDampingCoefficient getInertia getHardwareVersion getSoftwareVersion getPolePairs getPhaseResistance getPhaseInductance getFluxLinkage getGearRatio getSubVersion getMotorPosition getOutputPosition : motor.

(** The settings that can be both written and read, with values of each kind
    of setting. *)
Inductive setting :=
| ofSpeedLoopGains (kp ki : Z)
| ofPositionLoopGains (kp ki : Z)
| ofSpeedLoopFilter (bw : Z)
| ofSpeedLoopDamping (deta : Z)
| ofCurrentLoopBandwidth (bw : Z)
| ofCurrentEnhanceFactor (c1 : Z)
| ofVelocityEnhanceFactor (c1 : Z)
| ofVoltageLimits (under over : Z)
| ofTemperatureLimit (ot : Z)
| ofOvercurrentLimit (oc : Z)
| ofAcceleration (acc : Z)
| ofDeceleration (dec : Z)
| ofMaxSpeed (spd : Z)
| ofMappingRanges (pmax vmax tmax : Z)
| ofTorqueConstant (kt : Z)
| ofGearEfficiency (gref : Z).

(** Its values, and what its setter and its getter do. *)
Definition values (s : setting) : list Z :=
  match s with
  | ofSpeedLoopGains kp ki => [kp; ki]
  | ofPositionLoopGains kp ki => [kp; ki]
  | ofSpeedLoopFilter bw => [bw]
  | ofSpeedLoopDamping deta => [deta]
  | ofCurrentLoopBandwidth bw => [bw]
  | ofCurrentEnhanceFactor c1 => [c1]
  | ofVelocityEnhanceFactor c1 => [c1]
  | ofVoltageLimits under over => [under; over]
  | ofTemperatureLimit ot => [ot]
  | ofOvercurrentLimit oc => [oc]
  | ofAcceleration acc => [acc]
  | ofDeceleration dec => [dec]
  | ofMaxSpeed spd => [spd]
  | ofMappingRanges pmax vmax tmax => [pmax; vmax; tmax]
  | ofTorqueConstant kt => [kt]
  | ofGearEfficiency gref => [gref]
  end.
Definition registers (s : setting) : list MotorRegister :=
  match s with
  | ofSpeedLoopGains _ _ => [SpeedLoopKp; SpeedLoopKi]
  | ofPositionLoopGains _ _ => [PositionLoopKp; PositionLoopKi]
  | ofSpeedLoopFilter _ => [SpeedLoopFilterBW]
  | ofSpeedLoopDamping _ => [SpeedLoopDamping]
  | ofCurrentLoopBandwidth _ => [CurrentLoopBandwidth]
  | ofCurrentEnhanceFactor _ => [CurrentEnhanceFactor]
  | ofVelocityEnhanceFactor _ => [VelocityEnhanceFactor]
  | ofVoltageLimits _ _ => [VoltageUnder; VoltageOver]
  | ofTemperatureLimit _ => [TemperatureLimit]
  | ofOvercurrentLimit _ => [OvercurrentLimit]
  | ofAcceleration _ => [Acceleration]
  | ofDeceleration _ => [Deceleration]
  | ofMaxSpeed _ => [MaxSpeed]
  | ofMappingRanges _ _ _ => [PositionMax; VelocityMax; TorqueMax]
  | ofTorqueConstant _ => [TorqueConstant]
  | ofGearEfficiency _ => [GearEfficiency]
  end.
Definition set (joint : Z) (s : setting) : arm bool :=
  match s with
  | ofSpeedLoopGains kp ki => setSpeedLoopGains joint kp ki
  | ofPositionLoopGains kp ki => setPositionLoopGains joint kp ki
  | ofSpeedLoopFilter bw => setSpeedLoopFilter joint bw
  | ofSpeedLoopDamping deta => setSpeedLoopDamping joint deta
  | ofCurrentLoopBandwidth bw => setCurrentLoopBandwidth joint bw
  | ofCurrentEnhanceFactor c1 => setCurrentEnhanceFactor joint c1
  | ofVelocityEnhanceFactor c1 => setVelocityEnhanceFactor joint c1
  | ofVoltageLimits under over => setVoltageLimits joint under over
  | ofTemperatureLimit ot => setTemperatureLimit joint ot
  | ofOvercurrentLimit oc => setOvercurrentLimit joint oc
  | ofAcceleration acc => setAcceleration joint acc
  | ofDeceleration dec => setDeceleration joint dec
  | ofMaxSpeed spd => setMaxSpeed joint spd
  | ofMappingRanges pmax vmax tmax => setMappingRanges joint pmax vmax tmax
  | ofTorqueConstant kt => setTorqueConstant joint kt
  | ofGearEfficiency gref => setGearEfficiency joint gref
  end.
Definition get (joint : Z) (s : setting) : arm (list (option Z)) :=
  match s with
  | ofSpeedLoopGains _ _ => '(x, y) ← getSpeedLoopGains joint; mret [x; y]
  | ofPositionLoopGains _ _ => '(x, y) ← getPositionLoopGains joint; mret [x; y]
  | ofSpeedLoopFilter _ => x ← getSpeedLoopFilter joint; mret [x]
  | ofSpeedLoopDamping _ => x ← getSpeedLoopDamping joint; mret [x]
  | ofCurrentLoopBandwidth _ => x ← getCurrentLoopBandwidth joint; mret [x]
  | ofCurrentEnhanceFactor _ => x ← getCurrentEnhanceFactor joint; mret [x]
  | ofVelocityEnhanceFactor _ => x ← getVelocityEnhanceFactor joint; mret [x]
  | ofVoltageLimits _ _ => '(x, y) ← getVoltageLimits joint; mret [x; y]
  | ofTemperatureLimit _ => x ← getTemperatureLimit joint; mret [x]
  | ofOvercurrentLimit _ => x ← getOvercurrentLimit joint; mret [x]
  | ofAcceleration _ => x ← getAcceleration joint; mret [x]
  | ofDeceleration _ => x ← getDeceleration joint; mret [x]
  | ofMaxSpeed _ => x ← getMaxSpeed joint; mret [x]
  | ofMappingRanges _ _ _ => '(x, y, z) ← getMappingRanges joint; mret [x; y; z]
  | ofTorqueConstant _ => x ← getTorqueConstant joint; mret [x]
  | ofGearEfficiency _ => x ← getGearEfficiency joint; mret [x]
  end.
End Motor.

(** ** A motor that keeps what is written

    A device whose registers hold the last value written, as the endpoint
    shows it: every request is accepted and done. *)
Record motors := { mo_registers : gmap (Z * Z) Z; mo_asked : Z * Z }.

Definition done_result : FciOperationResult := {|
  res_request_id := 1; res_state := kCompleted; res_status := kOk; res_domain_status := 0; res_link_status := 0 |}.

Definition motor_answer (R : Type) (c : arm_call R) : motors -> R * motors :=
  match c in arm_call R return motors -> R * motors with
  | EpSubmit call => fun m =>
      ((kOk, 1), match call with
                 | CallWriteMotorRegister j r v _ =>
                     {| mo_registers := <[(j, r) := v]> (mo_registers m); mo_asked := mo_asked m |}
                 | CallReadMotorRegister j r _ => {| mo_registers := mo_registers m; mo_asked := (j, r) |}
                 | _ => m
                 end)
  | EpWait _ _ => fun m => ((kOk, Some done_result), m)
  | EpTake _ => fun m => ((kOk, Some done_result), m)
  | EpTakeMotorRegister _ => fun m => ((kOk, Some done_result, mo_registers m !! mo_asked m), m)
  | EpInitialize | EpAttachDirectTransport | EpSetSink | EpSetCallbacks | EpStart => fun m => (kOk, m)
  | EpTakeDeviceInfo _ => fun m => ((kNoData, None, None), m)
  | EpTakeDeviceSettings _ => fun m => ((kNoData, None, None), m)
  | EpControlLease => fun m => (lease0, m)
  | EpSend _ _ => fun m => (kOk, m)
  | TrConnectionState => fun m => (TransportState.kConnected, m)
  | TrLastError | ClockNs | NowUs | CurrentGeneration => fun m => (0, m)
  | LoadRunning | LoadStop | TryAcquire | GateEnter _ => fun m => (false, m)
  | TakeLatestState => fun m => (None, m)
  | Callback _ => fun m => (None, m)
  | EpStop | TrSetReceiveCallback _ | SleepMs _ | StoreRunning _ | StoreStop _ | SignalWake | ClearWake
  | Acquire | AdvanceGeneration | DrainSends | GateLeave => fun m => (tt, m)
  end.

(** The result of a program of the arm with such a device. *)
Fixpoint evaluate {A} (p : prog arm_call A) (m : motors) : A * motors :=
  match p with
  | Ret a => (a, m)
  | Call c k => let '(r, m') := motor_answer _ c m in evaluate (k r) m'
  end.
Definition outcome {A} (p : arm A) (s : ArmImpl) (m : motors) : ArmImpl * (exception + A) * motors :=
  evaluate (p s) m.

Lemma evaluate_bind {A B} (p : prog arm_call A) (f : A -> prog arm_call B) m :
  evaluate (p ≫= f) m = evaluate (f (evaluate p m).1) (evaluate p m).2.
Proof.
  revert m. induction p as [a|R c k IH]; intros m; [done|].
  change (Call c k ≫= f) with (Call c (fun r => k r ≫= f)). cbn.
  destruct (motor_answer R c m) as [r m']. apply IH.
Qed.

Lemma outcome_assoc {A B C} (p : arm A) (f : A -> arm B) (g : B -> arm C) s m :
  outcome ((p ≫= f) ≫= g) s m = outcome (p ≫= fun x => f x ≫= g) s m.
Proof.
  unfold outcome.
  change (((p ≫= f) ≫= g) s) with
    ((p s ≫= fun out => match snd out with inl e => mret (fst out, inl e) | inr a => f a (fst out) end)
      ≫= fun out => match snd out with inl e => mret (fst out, inl e) | inr a => g a (fst out) end).
  change ((p ≫= fun x => f x ≫= g) s) with
    (p s ≫= fun out => match snd out with inl e => mret (fst out, inl e) | inr a => (f a ≫= g) (fst out) end).
  rewrite !evaluate_bind. destruct (evaluate (p s) m) as [[s' [e|a]] m']; [done|]. cbn.
  change ((f a ≫= g) s') with
    (f a s' ≫= fun out => match snd out with inl e => mret (fst out, inl e) | inr b => g b (fst out) end).
  by rewrite evaluate_bind.
Qed.

Definition stored (joint : Z) (r : MotorRegister) (v : Z) (m : motors) : motors :=
  {| mo_registers := <[(s_wireJointId joint, register_id r) := v]> (mo_registers m); mo_asked := mo_asked m |}.
Definition asked (joint : Z) (r : MotorRegister) (m : motors) : motors :=
  {| mo_registers := mo_registers m; mo_asked := (s_wireJointId joint, register_id r) |}.

Lemma asked_registers joint r m : mo_registers (asked joint r m) = mo_registers m.
Proof. done. Qed.

Lemma outcome_write {A} joint r v (k : bool -> arm A) s m :
  s_validJointId joint = true -> isfinite v = true ->
  outcome (Motor.write joint r v ≫= k) s m = outcome (k true) s (stored joint r v m).
Proof.
  intros Hj Hv. unfold outcome, Motor.write, arm_writeMotorRegister. by rewrite Hj, Hv.
Qed.

Lemma outcome_read {A} joint r v (k : option Z -> arm A) s m :
  s_validJointId joint = true -> isfinite v = true ->
  mo_registers m !! (s_wireJointId joint, register_id r) = Some v ->
  outcome (Motor.read joint r ≫= k) s m = outcome (k (Some v)) s (asked joint r m).
Proof.
  intros Hj Hv Hm. unfold outcome, Motor.read, arm_readMotorRegister. rewrite Hj.
  set (value := default 0 (mo_registers m !! (s_wireJointId joint, register_id r))).
  transitivity (evaluate (((if negb (isfinite value) then mret None else mret (Some value)) ≫= k) s) (asked joint r m));
    [done|].
  unfold value. rewrite Hm. cbn [from_option id]. by rewrite Hv.
Qed.

(** Registers are numbered apart. *)
Lemma register_id_inj r1 r2 : register_id r1 = register_id r2 -> r1 = r2.
Proof. by destruct r1, r2. Qed.

Lemma stored_same joint r v m : mo_registers (stored joint r v m) !! (s_wireJointId joint, register_id r) = Some v.
Proof. apply lookup_insert_eq. Qed.
Lemma stored_other joint r r' v m : r' <> r ->
  mo_registers (stored joint r v m) !! (s_wireJointId joint, register_id r') =
  mo_registers m !! (s_wireJointId joint, register_id r').
Proof. intros Hne. apply lookup_insert_ne. intros Heq. apply Hne, register_id_inj. congruence. Qed.

(** What one write shows, with what it returns: nothing happens for a joint that
    does not exist or a value that is not finite; otherwise the write is
    submitted, waited for when it was accepted, and its result taken unless it is
    still running after the wait; it is done when the result says so. *)
Inductive write_shows (joint : Z) (r : MotorRegister) (v : Z) : list (event arm_call) -> bool -> Prop :=
| shows_refused :
    s_validJointId joint && isfinite v = false -> write_shows joint r v [] false
| shows_unsubmitted st id :
    s_validJointId joint && isfinite v = true -> st <> kOk ->
    write_shows joint r v
      [Event (EpSubmit (CallWriteMotorRegister (s_wireJointId joint) (register_id r) v
         s_kDefaultRpcTimeoutMs)) (st, id)] false
| shows_running id result :
    s_validJointId joint && isfinite v = true ->
    write_shows joint r v
      [Event (EpSubmit (CallWriteMotorRegister (s_wireJointId joint) (register_id r) v
         s_kDefaultRpcTimeoutMs)) (kOk, id);
       Event (EpWait id 750) (kBusy, result)] false
| shows_taken id waited st result :
    s_validJointId joint && isfinite v = true -> fst waited <> kBusy ->
    write_shows joint r v
      [Event (EpSubmit (CallWriteMotorRegister (s_wireJointId joint) (register_id r) v
         s_kDefaultRpcTimeoutMs)) (kOk, id);
       Event (EpWait id 750) waited; Event (EpTake id) (st, result)] (bool_decide (st = kOk)).

(** And writes in a row: the next one only after one that was done. *)
Inductive writes_show (joint : Z) : list (MotorRegister * Z) -> list (event arm_call) -> bool -> Prop :=
| shows_none : writes_show joint [] [] true
| shows_last r v ws l :
    write_shows joint r v l false -> writes_show joint ((r, v) :: ws) l false
| shows_next r v ws l l' b :
    write_shows joint r v l true -> writes_show joint ws l' b ->
    writes_show joint ((r, v) :: ws) (l ++ l') b.

Lemma arm_bind_runs {A B} (p : arm A) (k : A -> arm B) s l s' r :
  runs ((p ≫= k) s) l (s', r) <-> exists l1 l2 s1 r1, l = l1 ++ l2 /\ runs (p s) l1 (s1, r1) /\
    match r1 with inl e => l2 = [] /\ (s', r) = (s1, inl e) | inr a => runs (k a s1) l2 (s', r) end.
Proof.
  change ((p ≫= k) s) with (p s ≫= fun out => match snd out with inl e => mret (fst out, inl e) | inr a => k a (fst out) end).
  rewrite runs_bind. split.
  - intros (l1 & l2 & [s1 [e|a]] & -> & H1 & H2); exists l1, l2, s1; [exists (inl e)|exists (inr a)].
    + apply runs_ret in H2 as [-> H2]. by repeat split.
    + done.
  - intros (l1 & l2 & s1 & r1 & -> & H1 & H2). exists l1, l2, (s1, r1). split; [done|]. split; [done|].
    destruct r1; [|done]. by destruct H2 as [-> ->].
Qed.

Lemma ask_runs {R B} (c : arm_call R) (k : R -> arm B) s l s' r :
  runs ((ask c ≫= k) s) l (s', r) <-> exists a l', l = Event c a :: l' /\ runs (k a s) l' (s', r).
Proof. exact (runs_call c (fun a => k a s) l (s', r)). Qed.

(** A program whose runs are those of the writes of [l], in order. *)
Definition writes_of (joint : Z) (l : list (MotorRegister * Z)) (p : arm bool) : Prop :=
  forall s tr s' out, runs (p s) tr (s', out) <->
    s' = s /\ exists b, out = inr b /\ writes_show joint l tr b.

Lemma write_runs joint r v s l s' out :
  runs (Motor.write joint r v s) l (s', out) <->
  s' = s /\ exists b, out = inr b /\ write_shows joint r v l b.
Proof.
  unfold Motor.write, arm_writeMotorRegister.
  destruct (s_validJointId joint && isfinite v) eqn:Hv.
  2: { rewrite (runs_ret (E := arm_call) (s, inr false) (s', out)). split.
    - intros [-> [= <- <-]]. split; [done|]. exists false. split; [done|]. by constructor.
    - intros [-> (b & -> & Hw)]. inversion Hw; subst; [done|congruence..]. }
  unfold succeeded. rewrite ask_runs. split.
  - intros (submit & l1 & -> & H1). unfold s_operationSucceeded in H1.
    destruct submit as [st id]. cbn [fst snd] in H1.
    destruct (bool_decide_reflect (st = kOk)) as [->|Hst]; cbn [negb] in H1.
    2: { destruct H1 as [-> [= <- <-]]. split; [done|]. exists false. split; [done|]. by constructor. }
    apply ask_runs in H1 as ([wst result] & l2 & -> & H1). cbn [fst] in H1.
    destruct (decide (wst = kBusy)) as [->|Hw].
    { destruct H1 as [-> [= <- <-]]. split; [done|]. exists false. split; [done|]. by constructor. }
    apply ask_runs in H1 as ([tst taken] & l3 & -> & H1). destruct H1 as [-> [= <- <-]].
    split; [done|]. eexists. split; [done|]. by constructor.
  - intros [-> (b & -> & Hw)].
    inversion Hw as [|st id _ Hst|id result _|id [wst waited] st result _ Hwt]; subst; [congruence|..];
      (do 2 eexists; split; [done|]); unfold s_operationSucceeded; cbn [fst snd].
    + by rewrite bool_decide_eq_false_2.
    + rewrite bool_decide_eq_true_2 by done. cbn [negb]. apply ask_runs. do 2 eexists. split; [done|].
      by rewrite decide_True.
    + rewrite bool_decide_eq_true_2 by done. cbn [negb]. apply ask_runs. do 2 eexists. split; [done|].
      rewrite decide_False by done. apply ask_runs. by do 2 eexists.
Qed.

Lemma writes_one joint r v : writes_of joint [(r, v)] (Motor.write joint r v).
Proof.
  intros s tr s' out. rewrite write_runs. split; intros [-> (b & -> & Hw)]; (split; [done|]); exists b;
    (split; [done|]).
  - destruct b; [|by constructor]. rewrite <- (app_nil_r tr). by repeat econstructor.
  - inversion Hw as [|? ? ? ? Hl|? ? ? ? ? ? Hl Hn]; subst; [done|]. inversion Hn. subst. by rewrite app_nil_r.
Qed.

Lemma writes_show_app joint l1 l2 tr b :
  writes_show joint (l1 ++ l2) tr b <->
  b = false /\ writes_show joint l1 tr false \/
  exists tr1 tr2, tr = tr1 ++ tr2 /\ writes_show joint l1 tr1 true /\ writes_show joint l2 tr2 b.
Proof.
  split.
  - revert tr. induction l1 as [|[r v] l1 IH]; intros tr Hw; cbn [app] in Hw.
    { right. exists [], tr. by repeat constructor. }
    inversion Hw as [|? ? ? ? Hl|? ? ? l l' ? Hl Hn]; subst; [left; by repeat constructor|].
    destruct (IH _ Hn) as [[-> Hf]|(tr1 & tr2 & -> & H1 & H2)].
    + left. split; [done|]. by constructor.
    + right. exists (l ++ tr1), tr2. rewrite app_assoc. by repeat constructor.
  - intros [[-> Hf]|(tr1 & tr2 & -> & H1 & H2)].
    + remember false as f eqn:Hfe. induction Hf as [|r v ws l Hl|r v ws l l' b Hl Hn IH]; [done| |];
        cbn [app]; [by constructor|]. constructor; auto.
    + remember true as f eqn:Hfe. induction H1 as [|r v ws l Hl|r v ws l l' b' Hl Hn IH]; [done..|].
      rewrite <- app_assoc. cbn [app]. constructor; auto.
Qed.

Lemma writes_and joint l1 l2 p q :
  writes_of joint l1 p -> writes_of joint l2 q -> writes_of joint (l1 ++ l2) (Motor.and_then p q).
Proof.
  intros Hp Hq s tr s' out. unfold Motor.and_then. rewrite arm_bind_runs. split.
  - intros (tr1 & tr2 & s1 & r1 & -> & [-> (b1 & -> & Hw1)]%Hp & H2). destruct b1.
    + apply Hq in H2 as [-> (b & -> & Hw2)]. split; [done|]. exists b. split; [done|].
      apply writes_show_app. right. by exists tr1, tr2.
    + destruct H2 as [-> [= <- <-]]. split; [done|]. exists false. split; [done|].
      rewrite app_nil_r. apply writes_show_app. by left.
  - intros [-> (b & -> & [[-> Hf]|(tr1 & tr2 & -> & H1 & H2)]%writes_show_app)].
    + exists tr, [], s, (inr false). rewrite app_nil_r. split; [done|]. split; [|done].
      apply Hp. split; [done|]. by exists false.
    + exists tr1, tr2, s, (inr true). split; [done|]. split; [apply Hp; split; [done|]; by exists true|].
      apply Hq. split; [done|]. by exists b.
Qed.

(** Evaluating writes and then reads of the same registers. *)
Ltac write_read :=
  repeat match goal with
  | |- context [outcome ((?p ≫= ?f) ≫= ?g) ?s ?m] => rewrite (outcome_assoc p f g s m)
  | |- context [outcome (Motor.write ?j ?r ?v ≫= ?k) ?s ?m] =>
      rewrite (outcome_write j r v k s m) by done; cbv beta iota
  | |- context [outcome (mret ?x ≫= ?k) ?s ?m] => change (outcome (mret x ≫= k) s m) with (outcome (k x) s m); cbv beta iota
  | |- context [outcome (Motor.read ?j ?r ≫= ?k) ?s ?m] =>
      erewrite (outcome_read j r _ k s m);
        [cbv beta|done| |rewrite ?asked_registers; repeat (rewrite stored_other by done); apply stored_same]; [|done]
  end; done.

(** C37: what is written is kept.  Whatever the endpoint answers, the runs of a
    setter are exactly these: it submits the writes of its registers in their
    order, waits for each and takes its result; the next one is submitted only
    when the one before it was done, and [true] is returned only when all of them
    were ([writes_show]); the arm's own state is left alone.  With a motor that
    keeps what it is sent, a setter of an existing joint and of numbers returns
    [true], and the getter of that setting then returns the values that were
    set. *)
Theorem settings_kept joint s :
  (forall a tr a' out,
     runs (Motor.set joint s a) tr (a', out) <->
     a' = a /\ exists b, out = inr b /\
       writes_show joint (zip (Motor.registers s) (Motor.values s)) tr b) /\
  (s_validJointId joint = true -> Forall (fun v => isfinite v = true) (Motor.values s) ->
   forall a m,
     (outcome (ok ← Motor.set joint s; got ← Motor.get joint s; mret (ok, got)) a m).1 =
       (a, inr (true, map Some (Motor.values s)))).
Proof.
  split.
  - change (writes_of joint (zip (Motor.registers s) (Motor.values s)) (Motor.set joint s)).
    destruct s; cbn [Motor.registers Motor.values zip zip_with Motor.set];
      first [ exact (writes_one _ _ _)
            | exact (writes_and _ [_] [_] _ _ (writes_one _ _ _) (writes_one _ _ _))
            | exact (writes_and _ [_; _] [_] _ _ (writes_and _ [_] [_] _ _ (writes_one _ _ _) (writes_one _ _ _))
                (writes_one _ _ _)) ].
  - intros Hj Hv a m. destruct s; cbn [Motor.values] in Hv; repeat apply Forall_cons_1 in Hv as [? Hv].
    all: cbn [Motor.set Motor.get]; autounfold with motor.
    all: write_read.
Qed.

(** The mapping ranges 12.5, 45 and 18 of the joint 3. *)
Lemma settings_kept_witness :
  let s := Motor.ofMappingRanges 1095237632 1110704128 1099956224 in
  let m := {| mo_registers := ∅; mo_asked := (0, 0) |} in
  s_validJointId 3 = true /\
  (outcome (ok ← Motor.set 3 s; got ← Motor.get 3 s; mret (ok, got)) arm0 m).1 =
    (arm0, inr (true, [Some 1095237632; Some 1110704128; Some 1099956224])).
Proof.
  split; [done|]. apply (proj2 (settings_kept 3 (Motor.ofMappingRanges 1095237632 1110704128 1099956224))); [done|].
  repeat constructor.
Defined.
