(* ===== verification/Transports.v ===== *)
(** * Transports

    [src/AstrialBulkTransport.cpp], [src/AstrialUSBTransport.cpp] and
    [src/UdpTransport.cpp], with their headers and
    [include/florid/detail/Transport.hpp]: the three transports own an adapter of
    the link library, which they open, service and quiesce.  The adapters are
    third-party code, behind calls; the settings they are opened with are data.
    The three classes differ by their settings and in what they do with the wake
    function and the last error. *)

From Stdlib Require Import String.
From S2P Require Import Prelude DeviceTypes UsbUri Endpoint ArmImpl Prog.

Open Scope list_scope.

(** ** Settings *)

Inductive adapter_config :=
| BulkConfig (vendor product : Z) (serial : string) (port_path : list Z)
    (interface endpoint_in endpoint_out queue_depth maximum_read_size : Z)
| SerialConfig (port : string) (baud_rate : Z) (auto_reconnect : bool)
| UdpConfig (bind_address : string) (bind_port maximum_datagram_size poll_interval_ms : Z) (learn_peer : bool).

Inductive transport_kind := Bulk | Serial | Udp.

(** The constructors. *)
Definition AstrialBulkTransport (vendor product : Z) (serial : string) (port_path : list Z) : adapter_config :=
  BulkConfig vendor product serial port_path 0 129 1 1 512.
Definition AstrialUSBTransport (port : string) (baud_rate : Z) : adapter_config :=
  SerialConfig port baud_rate true.
Definition UdpTransport (bind_ip : string) (bind_port : Z) : adapter_config :=
  UdpConfig bind_ip bind_port 2048 1 true.

(** ** Calls and state *)

(** What opening a USB adapter answers: an adapter, an error, or an exception;
    and for the UDP adapter, whether there is one and whether there was an error,
    or [None] for an exception. *)
Inductive opened := OpenOk | OpenError (error : Z) | OpenThrew.

(** [std::error_code]: the library's, or [UsbError::IoError]. *)
Inductive error_code := NoError | IoError | LibraryError (error : Z).

(** [UsbState], and the statistics of an adapter and its device. *)
Inductive usb_state := UsbConnected | UsbDisconnected | UsbReconnecting | UsbClosed.
Record adapter_stats := {
  rx_units : Z; rx_bytes : Z; rx_backpressure : Z; tx_units : Z; tx_completions : Z; tx_bytes : Z;
  activity_notifications : Z; adapter_errors : Z
}.

Inductive transport_call : Type -> Type :=
| AdapterOpen : transport_call opened
| UdpOpen : transport_call (option (bool * bool))
| AdapterService : transport_call wl_result
| AdapterQuiesce : transport_call unit
| AdapterFree : transport_call unit
| AdapterDeadline (now : Z) : transport_call Z
| DeviceState : transport_call usb_state
| AdapterStats : transport_call adapter_stats
| DeviceErrors : transport_call Z
| Wake (function : Z) : transport_call unit.

(** [m_adapter], [m_wake] with its context, and [m_last_error]. *)
Record transport := {
  tr_kind : transport_kind;
  tr_adapter : bool;
  tr_wake : option Z;
  tr_last_error : error_code
}.
Definition transport0 (k : transport_kind) : transport :=
  {| tr_kind := k; tr_adapter := false; tr_wake := None; tr_last_error := NoError |}.
Definition set_adapter (b : bool) (t : transport) : transport :=
  {| tr_kind := tr_kind t; tr_adapter := b; tr_wake := tr_wake t; tr_last_error := tr_last_error t |}.
Definition set_wake (w : option Z) (t : transport) : transport :=
  {| tr_kind := tr_kind t; tr_adapter := tr_adapter t; tr_wake := w; tr_last_error := tr_last_error t |}.
Definition set_error (e : error_code) (t : transport) : transport :=
  {| tr_kind := tr_kind t; tr_adapter := tr_adapter t; tr_wake := tr_wake t; tr_last_error := e |}.

Abbreviation trp := (prog transport_call).

(** ** Operations *)

(** [attachWirelink]; [wake] is [None] for a null function.  The bulk
    transport reports the error of the library, the serial one has none to
    report, and the UDP one does not keep the wake function. *)
Definition attachWirelink (wake : option Z) (t : transport) : trp (wl_result * transport) :=
  if tr_adapter t || bool_decide (wake = None) then mret (WL_ERR_INVALID_STATE, t)
  else
    match tr_kind t with
    | Bulk =>
        let t := set_error NoError (set_wake wake t) in
        result ← call AdapterOpen;
        match result with
        | OpenOk => mret (WL_OK, set_adapter true t)
        | OpenError error => mret (WL_ERR_IO, set_wake None (set_error (LibraryError error) t))
        | OpenThrew => mret (WL_ERR_IO, set_wake None (set_error IoError t))
        end
    | Serial =>
        let t := set_wake wake t in
        result ← call AdapterOpen;
        match result with
        | OpenOk => mret (WL_OK, set_adapter true t)
        | _ => mret (WL_ERR_IO, set_wake None t)
        end
    | Udp =>
        result ← call UdpOpen;
        match result with
        | Some (adapter, error) =>
            mret (if negb adapter || error then WL_ERR_IO else WL_OK, set_adapter adapter t)
        | None => mret (WL_ERR_IO, t)
        end
    end.

Definition serviceWirelink (t : transport) : trp wl_result :=
  if tr_adapter t then call AdapterService else mret WL_ERR_INVALID_STATE.

Definition quiesceWirelink (t : transport) : trp transport :=
  _ ← (if tr_adapter t then _ ← call AdapterQuiesce; call AdapterFree else mret tt);
  mret (match tr_kind t with Udp => set_adapter false t | _ => set_wake None (set_adapter false t) end).

Definition WL_POLL_NO_DEADLINE_MS : Z := 2 ^ 32 - 1.
Definition wirelinkDeadlineHint (now : Z) (t : transport) : trp Z :=
  if tr_adapter t then call (AdapterDeadline now) else mret WL_POLL_NO_DEADLINE_MS.

(** [s_onActivity], which the adapter calls; the UDP transport has none. *)
Definition s_onActivity (t : transport) : trp unit :=
  match tr_kind t, tr_wake t with
  | Bulk, Some wake | Serial, Some wake => call (Wake wake)
  | _, _ => mret tt
  end.

(** [connectionState]: only the bulk transport knows. *)
Definition connection_state (t : transport) : trp TransportConnectionState :=
  match tr_kind t with
  | Bulk =>
      if negb (tr_adapter t) then mret TransportState.kClosed
      else
        st ← call DeviceState;
        mret match st with
             | UsbConnected => TransportState.kConnected
             | UsbDisconnected => TransportState.kDisconnected
             | UsbReconnecting => TransportState.kReconnecting
             | UsbClosed => TransportState.kClosed
             end
  | _ => mret TransportState.kUnknown
  end.

(** [AstrialBulkTransportStats]. *)
Record AstrialBulkTransportStats := {
  bs_rx_claims : Z; bs_rx_bytes : Z; bs_rx_pauses : Z; bs_tx_submissions : Z; bs_tx_completions : Z;
  bs_tx_bytes : Z; bs_activity_notifications : Z; bs_adapter_errors : Z; bs_usb_errors : Z
}.
Definition transport_stats (t : transport) : trp (option AstrialBulkTransportStats) :=
  if negb (tr_adapter t) then mret None
  else
    a ← call AdapterStats;
    errors ← call DeviceErrors;
    mret (Some {|
      bs_rx_claims := rx_units a; bs_rx_bytes := rx_bytes a; bs_rx_pauses := rx_backpressure a;
      bs_tx_submissions := tx_units a; bs_tx_completions := tx_completions a; bs_tx_bytes := tx_bytes a;
      bs_activity_notifications := activity_notifications a; bs_adapter_errors := adapter_errors a;
      bs_usb_errors := errors |}).

(** ** What is done with a transport *)

Inductive operation :=
| Attach (wake : option Z) | Service | Quiesce | Deadline (now : Z) | Activity | State.

Definition operate (o : operation) (t : transport) : trp transport :=
  match o with
  | Attach wake => '(_, t) ← attachWirelink wake t; mret t
  | Service => _ ← serviceWirelink t; mret t
  | Quiesce => quiesceWirelink t
  | Deadline now => _ ← wirelinkDeadlineHint now t; mret t
  | Activity => _ ← s_onActivity t; mret t
  | State => _ ← connection_state t; mret t
  end.

Fixpoint operate_all (l : list operation) (t : transport) : trp transport :=
  match l with [] => mret t | o :: l => t ← operate o t; operate_all l t end.

(** The whole life of a transport: its operations, and its destructor. *)
Definition transport_life (k : transport_kind) (l : list operation) : trp transport :=
  t ← operate_all l (transport0 k); quiesceWirelink t.

(** ** Adapters and wake-ups are accounted for *)

(** The adapters that a trace has opened, and those it has freed. *)
Definition opens_adapter (ev : event transport_call) : bool :=
  match ev with
  | @Event _ R c a =>
      match c in transport_call R return R -> bool with
      | AdapterOpen => fun r => match r with OpenOk => true | _ => false end
      | UdpOpen => fun r => match r with Some (adapter, _) => adapter | None => false end
      | _ => fun _ => false
      end a
  end.
Definition frees_adapter (ev : event transport_call) : bool :=
  match ev with @Event _ R c a => match c with AdapterFree => true | _ => false end end.
Definition quiesces_adapter (ev : event transport_call) : bool :=
  match ev with @Event _ R c a => match c with AdapterQuiesce => true | _ => false end end.

Definition adapters (h : list (event transport_call)) : Z :=
  Z.of_nat (count_calls opens_adapter h) - Z.of_nat (count_calls frees_adapter h).

(** What may happen: an adapter is opened when there is none, used, quiesced and
    freed when there is one, and the wake function is called when there is one. *)
Definition in_order (h : list (event transport_call)) (ev : event transport_call) : Prop :=
  match ev with
  | @Event _ R c a =>
      match c with
      | AdapterOpen | UdpOpen => adapters h = 0
      | AdapterFree => adapters h = 1 /\ exists h', h = h' ++ [Event AdapterQuiesce tt]
      | _ => adapters h = 1
      end
  end.

Definition accounted (h : list (event transport_call)) (t : transport) : Prop :=
  adapters h = (if tr_adapter t then 1 else 0) /\
  (tr_kind t <> Udp -> is_Some (tr_wake t) -> tr_adapter t = true) /\
  count_calls quiesces_adapter h = count_calls frees_adapter h.

Lemma adapters_snoc h ev :
  adapters (h ++ [ev]) = adapters h + (if opens_adapter ev then 1 else 0) - (if frees_adapter ev then 1 else 0).
Proof.
  unfold adapters. rewrite !count_calls_app. cbn. destruct (opens_adapter ev), (frees_adapter ev); lia.
Qed.

(** A call that uses the adapter. *)
Lemma accounted_use h t ev :
  accounted h t -> opens_adapter ev = false -> frees_adapter ev = false -> quiesces_adapter ev = false ->
  accounted (h ++ [ev]) t.
Proof.
  intros (Ha & Hw & Hq) H1 H2 H3. split; [|split; [done|]].
  - rewrite adapters_snoc, H1, H2, Ha. lia.
  - rewrite !count_calls_app, Hq. cbn. by rewrite H2, H3.
Qed.

Lemma accounted_present h t : accounted h t -> tr_adapter t = true -> adapters h = 1.
Proof. intros (Ha & _) Ht. by rewrite Ht in Ha. Qed.

Lemma attach_accounted wake h t :
  accounted h t -> safe in_order h (attachWirelink wake t) (fun h' '(_, t') => accounted h' t').
Proof.
  intros Hok. unfold attachWirelink. destruct (tr_adapter t) eqn:Ht; cbn [orb]; [done|].
  destruct Hok as (Ha & Hw & Hq). rewrite Ht in Ha.
  case_bool_decide; [apply safe_ret; split; [by rewrite Ht|done]|].
  destruct (tr_kind t) eqn:Hk; (apply safe_call; [done|]); intros r.
  1,2: destruct r; apply safe_ret; (split; [|split]); cbn; rewrite ?adapters_snoc, ?count_calls_app, ?Hq, ?Ha, ?Ht; cbn;
    rewrite ?Nat.add_0_r; try done; by intros _ [].
  destruct r as [[[] error]|]; apply safe_ret; (split; [|split]); cbn; rewrite ?adapters_snoc, ?count_calls_app, ?Hq, ?Ha, ?Ht, ?Hk; cbn;
    rewrite ?Nat.add_0_r; done.
Qed.

Lemma quiesce_accounted h t :
  accounted h t -> safe in_order h (quiesceWirelink t) (fun h' t' => accounted h' t' /\ tr_adapter t' = false).
Proof.
  intros Hok. unfold quiesceWirelink. destruct (tr_adapter t) eqn:Ht.
  - apply safe_assoc, safe_call; [intros []; by eapply accounted_present|]. intros [].
    apply safe_call; [intros []|intros []; apply safe_ret].
    + split; [|by eexists]. rewrite adapters_snoc, (accounted_present h t) by done. done.
    + destruct Hok as (Ha & Hw & Hq). rewrite Ht in Ha.
      destruct (tr_kind t) eqn:Hk; (split; [|done]); (split; [|split]);
        rewrite ?adapters_snoc, ?Ha, ?count_calls_app, ?Hq; cbn; try lia; rewrite ?Hk; try done; by intros _ [].
  - apply safe_ret. destruct Hok as (Ha & Hw & Hq). rewrite Ht in Ha.
    destruct (tr_kind t) eqn:Hk; (split; [|done]); (split; [|split]); cbn; rewrite ?Hk; try done; by intros _ [].
Qed.

Lemma operate_accounted o h t : accounted h t -> safe in_order h (operate o t) accounted.
Proof.
  intros Hok. destruct o as [wake| | |now| |]; cbn [operate].
  - eapply safe_bind; [by apply attach_accounted|]. intros h' [r0 t0] H0. exact H0.
  - unfold serviceWirelink. destruct (tr_adapter t) eqn:Ht; [|done].
    apply safe_call; [intros ?; by eapply accounted_present|]. intros r. apply safe_ret. by apply accounted_use.
  - eapply safe_mono; [by apply quiesce_accounted|]. intros h' t0 [H0 _]. exact H0.
  - unfold wirelinkDeadlineHint. destruct (tr_adapter t) eqn:Ht; [|done].
    apply safe_call; [intros ?; by eapply accounted_present|]. intros r. apply safe_ret. by apply accounted_use.
  - unfold s_onActivity. destruct (tr_kind t) eqn:Hk, (tr_wake t) eqn:Hw; try done;
      (apply safe_call; [intros ?; eapply accounted_present; [done|]; destruct Hok as (_ & Hw' & _); apply Hw'; by rewrite ?Hk, ?Hw|]);
      intros r; apply safe_ret; by apply accounted_use.
  - unfold connection_state. destruct (tr_kind t); try done. destruct (tr_adapter t) eqn:Ht; cbn [negb]; [|done].
    apply safe_assoc, safe_call; [intros ?; by eapply accounted_present|]. intros r. apply safe_ret. by apply accounted_use.
Qed.


