(* ===== verification/EndpointSetup.v ===== *)
(** * Setting up the device endpoint

    [src/FciWirelinkEndpoint.cpp], lines 276-396 and 1169-1240: initialising the
    endpoint, its sink, its direct transport, its callbacks, starting and stopping
    it, and the hooks that the link library calls on its owner thread.  A member
    function is a program over the calls it makes; the state is what is set up
    here.  What runs meanwhile is [EndpointOps.v]. *)

From S2P Require Import Prelude Endpoint ArmImpl Prog.

(** ** Calls *)

Inductive setup_call : Type -> Type :=
| ConfigDefaults : setup_call wl_result
| UpgradeConfigure : setup_call unit
| InitConfig (max_retries ack_timeout_ms : Z) : setup_call wl_result  (* fci_device_endpoint_init_config *)
| UpgradeAttach : setup_call unit
| SetServices : setup_call wl_result
| SetPolicy : setup_call wl_result
| AttachPump : setup_call wl_result
| ExecutorInitialize : setup_call wl_result
| ExecutorSetSink : setup_call wl_result
| ExecutorStart : setup_call wl_result
| ExecutorStop : setup_call unit
| ExecutorFeed (data : bytes) : setup_call (wl_result * Z)
| ExecutorNotify : setup_call unit
| UpgradeConnected (running : bool) : setup_call unit
| UpgradeTransportState (connected : bool) : setup_call unit
| TransportAttach : setup_call wl_result
| TransportService : setup_call wl_result
| TransportConnection : setup_call TransportConnectionState
| TransportQuiesce : setup_call unit
| TransportDeadline (now : Z) : setup_call Z
| StopOnOwner : setup_call unit.

(** ** State *)

(** [m_initialized], [m_running], [m_direct_transport], the callbacks with their
    context, the command capabilities and the two counters of dispatches. *)
Record setup := {
  su_initialized : bool;
  su_running : bool;
  su_direct : bool;
  su_callbacks : option Z;
  su_capabilities : Z;
  su_dispatch_calls : Z;
  su_dispatch_errors : Z
}.
Definition setup0 : setup := {|
  su_initialized := false; su_running := false; su_direct := false; su_callbacks := None;
  su_capabilities := 0; su_dispatch_calls := 0; su_dispatch_errors := 0 |}.

Definition set_initialized (s : setup) : setup := {|
  su_initialized := true; su_running := su_running s; su_direct := su_direct s;
  su_callbacks := su_callbacks s; su_capabilities := 0;
  su_dispatch_calls := su_dispatch_calls s; su_dispatch_errors := su_dispatch_errors s |}.
Definition set_running (b : bool) (s : setup) : setup := {|
  su_initialized := su_initialized s; su_running := b; su_direct := su_direct s;
  su_callbacks := su_callbacks s; su_capabilities := su_capabilities s;
  su_dispatch_calls := su_dispatch_calls s; su_dispatch_errors := su_dispatch_errors s |}.
Definition set_direct (s : setup) : setup := {|
  su_initialized := su_initialized s; su_running := su_running s; su_direct := true;
  su_callbacks := su_callbacks s; su_capabilities := su_capabilities s;
  su_dispatch_calls := su_dispatch_calls s; su_dispatch_errors := su_dispatch_errors s |}.
Definition set_callbacks (c : Z) (s : setup) : setup := {|
  su_initialized := su_initialized s; su_running := su_running s; su_direct := su_direct s;
  su_callbacks := Some c; su_capabilities := su_capabilities s;
  su_dispatch_calls := su_dispatch_calls s; su_dispatch_errors := su_dispatch_errors s |}.
Definition count_dispatch (calls errors : Z) (s : setup) : setup := {|
  su_initialized := su_initialized s; su_running := su_running s; su_direct := su_direct s;
  su_callbacks := su_callbacks s; su_capabilities := su_capabilities s;
  su_dispatch_calls := u64 (su_dispatch_calls s + calls);
  su_dispatch_errors := u64 (su_dispatch_errors s + errors) |}.

Abbreviation sup := (prog setup_call).

(** ** Operations *)

(** Steps that each have to succeed. *)
Fixpoint in_turn (l : list (sup wl_result)) : sup wl_result :=
  match l with
  | [] => mret WL_OK
  | p :: l => result ← p; if decide (result = WL_OK) then in_turn l else mret result
  end.

Definition initialize_steps (max_retries ack_timeout_ms : Z) : list (sup wl_result) :=
  [ call ConfigDefaults;
    (_ ← call UpgradeConfigure; call (InitConfig max_retries ack_timeout_ms));
    (_ ← call UpgradeAttach; call SetServices);
    call SetPolicy;
    call AttachPump;
    call ExecutorInitialize ].

Definition initialize (max_retries ack_timeout_ms : Z) (s : setup) : sup (FciEndpointStatus * setup) :=
  if (ack_timeout_ms =? 0) || (ack_timeout_ms >=? s_kMaximumRelativeTimeout) then mret (kInvalidArgument, s)
  else if su_initialized s then mret (kBusy, s)
  else
    result ← in_turn (initialize_steps max_retries ack_timeout_ms);
    mret (if decide (result = WL_OK) then (kOk, set_initialized s) else (s_endpointStatus result, s)).

(** [sink]: whether the function is not null. *)
Definition setSink (sink : bool) (s : setup) : sup FciEndpointStatus :=
  if negb (su_initialized s) || negb sink then mret kInvalidArgument
  else result ← call ExecutorSetSink; mret (s_endpointStatus result).

(** [direct]: [usesDirectWirelink()] of the transport. *)
Definition attachDirectTransport (direct : bool) (s : setup) : sup (FciEndpointStatus * setup) :=
  if negb (su_initialized s) || su_running s || su_direct s || negb direct then mret (kNotReady, s)
  else
    result ← call TransportAttach;
    mret (if decide (result = WL_OK) then (kOk, set_direct s) else (s_endpointStatus result, s)).

Definition setCallbacks (callbacks : Z) (s : setup) : FciEndpointStatus * setup :=
  if negb (su_initialized s) || su_running s then (kNotReady, s) else (kOk, set_callbacks callbacks s).

Definition start (s : setup) : sup (FciEndpointStatus * setup) :=
  if negb (su_initialized s) || su_running s then mret (kNotReady, s)
  else
    let s := set_running true s in
    _ ← call (UpgradeConnected true);
    result ← call ExecutorStart;
    if decide (result = WL_OK) then mret (kOk, s)
    else
      _ ← call (UpgradeConnected false);
      mret (s_endpointStatus result, set_running false s).

Definition setup_stop (s : setup) : sup setup :=
  _ ← call (UpgradeConnected false);
  if negb (su_initialized s) then mret s
  else _ ← call ExecutorStop; mret (set_running false s).

Definition feedBytes (data : bytes) : sup (FciEndpointStatus * Z) :=
  '(result, accepted) ← call (ExecutorFeed data); mret (s_endpointStatus result, accepted).

(** [ArmImpl::s_feedBytes]: the bytes are offered until they are accepted, or
    nothing is. *)
Fixpoint s_feedBytes (fuel : nat) (data : bytes) : sup (option unit) :=
  match fuel with
  | O => mret None
  | S fuel =>
      match data with
      | [] => mret (Some tt)
      | _ =>
          '(st, accepted) ← feedBytes data;
          if negb (bool_decide (st = kOk)) || (accepted =? 0) then mret (Some tt)
          else s_feedBytes fuel (drop (Z.to_nat accepted) data)
      end
  end.

(** ** Hooks of the link library *)

Definition s_onEvent (s : setup) : setup := count_dispatch 1 0 s.
(** [ok]: the result is not an error, or is of no reception. *)
Definition s_onResult (ok : bool) (s : setup) : setup := if ok then s else count_dispatch 0 1 s.

Definition s_transportDeadline (now : Z) (s : setup) : sup Z :=
  if su_direct s then call (TransportDeadline now) else mret (2 ^ 32 - 1).
Definition s_quiesce (s : setup) : sup unit :=
  _ ← (if su_direct s then call TransportQuiesce else mret tt); call StopOnOwner.
Definition s_transportService (s : setup) : sup wl_result :=
  if negb (su_direct s) then mret WL_OK
  else
    result ← call TransportService;
    st ← call TransportConnection;
    _ ← (match st with
         | TransportState.kUnknown => mret tt
         | TransportState.kConnected => call (UpgradeTransportState true)
         | _ => call (UpgradeTransportState false)
         end);
    mret result.
Definition s_transportWake : sup unit := call ExecutorNotify.

(** ** The life of an endpoint *)

Inductive setup_op :=
| DoInitialize (max_retries ack_timeout_ms : Z) | DoSetSink (sink : bool) | DoAttach (direct : bool)
| DoSetCallbacks (callbacks : Z) | DoStart | DoStop.

Definition do_op (o : setup_op) (s : setup) : sup setup :=
  match o with
  | DoInitialize r a => '(_, s) ← initialize r a s; mret s
  | DoSetSink sink => _ ← setSink sink s; mret s
  | DoAttach direct => '(_, s) ← attachDirectTransport direct s; mret s
  | DoSetCallbacks c => mret (snd (setCallbacks c s))
  | DoStart => '(_, s) ← start s; mret s
  | DoStop => setup_stop s
  end.
Fixpoint do_ops (l : list setup_op) (s : setup) : sup setup :=
  match l with [] => mret s | o :: l => s ← do_op o s; do_ops l s end.

(** The link library has been initialised; a transport has been attached; what
    the upgrade client was told last. *)
Definition initialised_call (ev : event setup_call) : bool :=
  match ev with
  | @Event _ R c a =>
      match c in setup_call R return R -> bool with
      | ExecutorInitialize => fun r => bool_decide (r = WL_OK)
      | _ => fun _ => false
      end a
  end.
Definition attached_call (ev : event setup_call) : bool :=
  match ev with
  | @Event _ R c a =>
      match c in setup_call R return R -> bool with
      | TransportAttach => fun r => bool_decide (r = WL_OK)
      | _ => fun _ => false
      end a
  end.
Fixpoint told (h : list (event setup_call)) (b : bool) : bool :=
  match h with
  | [] => b
  | @Event _ R c a :: h => told h match c with UpgradeConnected b' => b' | _ => b end
  end.
Lemma told_snoc h ev b : told (h ++ [ev]) b = match ev with @Event _ R c a => match c with UpgradeConnected b' => b' | _ => told h b end end.
Proof. revert b. induction h as [|[R c a] h IH]; intros b; [by destruct ev as [R []]|]. apply IH. Qed.

(** What may be called when. *)
Definition setup_allowed (h : list (event setup_call)) (ev : event setup_call) : Prop :=
  match ev with
  | @Event _ R c a =>
      match c with
      | ConfigDefaults | InitConfig _ _ | SetServices | SetPolicy | AttachPump | ExecutorInitialize =>
          count_calls initialised_call h = 0%nat
      | ExecutorSetSink | ExecutorStop => count_calls initialised_call h = 1%nat
      | ExecutorStart => count_calls initialised_call h = 1%nat /\ told h false = true
      | TransportAttach => count_calls initialised_call h = 1%nat /\ count_calls attached_call h = 0%nat /\ told h false = false
      | _ => True
      end
  end.

Definition setup_inv (h : list (event setup_call)) (s : setup) : Prop :=
  count_calls initialised_call h = (if su_initialized s then 1 else 0)%nat /\
  count_calls attached_call h = (if su_direct s then 1 else 0)%nat /\
  told h false = su_running s /\
  (su_running s = true \/ su_direct s = true \/ is_Some (su_callbacks s) -> su_initialized s = true).

(** A call that changes none of what is counted. *)
Lemma setup_same h s ev :
  setup_inv h s -> initialised_call ev = false -> attached_call ev = false -> told (h ++ [ev]) false = told h false ->
  setup_inv (h ++ [ev]) s.
Proof.
  intros (H1 & H2 & H3 & H4) He1 He2 He3. unfold setup_inv. rewrite !count_calls_app, He3, H1, H2, H3. cbn.
  rewrite He1, He2, !Nat.add_0_r. done.
Qed.

Ltac same := apply setup_same; [|done..|by rewrite told_snoc].
Lemma told_last h b : told (h ++ [Event (UpgradeConnected b) tt]) false = b.
Proof. by rewrite told_snoc. Qed.

(** The steps of the initialisation; after the last one the library is ready. *)
Lemma initialize_safe r a h s :
  setup_inv h s -> safe setup_allowed h (initialize r a s) (fun h' '(st, s') => setup_inv h' s').
Proof.
  intros Hi. unfold initialize. destruct (_ || _); [done|]. destruct (su_initialized s) eqn:Hs; [done|].
  assert (forall h', setup_inv h' s -> count_calls initialised_call h' = 0%nat) as Hzero
    by (intros h' (H & _); by rewrite Hs in H).
  unfold initialize_steps, in_turn.
  repeat first
    [ match goal with |- safe _ _ ((_ ≫= _) ≫= _) _ => apply safe_assoc end
    | match goal with |- safe _ _ ((if decide (?x = WL_OK) then _ else _) ≫= _) _ =>
        destruct (decide (x = WL_OK)) as [->|]; [|apply safe_ret_bind, safe_ret; rewrite decide_False by done; done] end
    | match goal with |- safe _ ?h (call ?c ≫= _) _ =>
        lazymatch c with ExecutorInitialize => fail | _ =>
          let r := fresh "x" in
          apply safe_call; [intros ?; first [done|by apply Hzero]|intros r;
            assert (setup_inv (h ++ [Event c r]) s) by (same; done)] end end ].
  match goal with H : setup_inv ?h0 s |- safe _ ?h0 _ _ => rename H into Hlast; set (hl := h0) in * end.
  apply safe_call; [intros ?; by apply Hzero|]. intros result.
  destruct (decide (result = WL_OK)) as [->|Hne]; apply safe_ret_bind, safe_ret.
  - destruct Hlast as (H1' & H2' & H3' & H4'). rewrite Hs in H1'.
    split; [|split; [|split]]; rewrite ?count_calls_app, ?told_snoc, ?H1', ?H2', ?H3'; cbn; rewrite ?Nat.add_0_r; done.
  - rewrite decide_False by done. apply setup_same; [done|cbn; by rewrite bool_decide_false|done|by rewrite told_snoc].
Qed.

Lemma start_safe h s :
  setup_inv h s -> safe setup_allowed h (start s) (fun h' '(st, s') => setup_inv h' s').
Proof.
  intros Hi. unfold start. destruct (su_initialized s) eqn:Hs; cbn [negb orb]; [|done].
  destruct (su_running s) eqn:Hrun; [done|]. pose proof Hi as (H1 & H2 & H3 & H4). rewrite Hs in H1.
  assert (setup_inv (h ++ [Event (UpgradeConnected true) tt]) (set_running true s)) as Hi1.
  { split; [|split; [|split]]; rewrite ?count_calls_app, ?told_snoc, ?H1, ?H2; cbn; rewrite ?Hs, ?Nat.add_0_r; done. }
  apply safe_call; [done|]. intros []. apply safe_call.
  { intros ?. destruct Hi1 as (I1 & _ & I3 & _). cbn in I1, I3. by rewrite Hs in I1. }
  intros result. destruct (decide (result = WL_OK)) as [->|Hne].
  - apply safe_ret. same. done.
  - apply safe_call; [done|]. intros []. apply safe_ret.
    split; [|split; [|split]]; rewrite ?count_calls_app, ?told_snoc, ?H1, ?H2; cbn; rewrite ?Hs, ?Nat.add_0_r; done.
Qed.

Lemma do_op_safe o h s : setup_inv h s -> safe setup_allowed h (do_op o s) setup_inv.
Proof.
  intros Hi. pose proof Hi as (H1 & H2 & H3 & H4). destruct o as [r a|sink|direct|c| |]; cbn [do_op].
  - eapply safe_bind; [by apply initialize_safe|]. intros h' [st s'] Hs. exact Hs.
  - unfold setSink. destruct (su_initialized s) eqn:Hs; cbn [negb orb]; [|done]. destruct sink; cbn [negb]; [|done].
    apply safe_assoc, safe_call; [by intros ?|]. intros x. apply safe_ret_bind, safe_ret. by same.
  - unfold attachDirectTransport. destruct (su_initialized s) eqn:Hs; cbn [negb orb]; [|done].
    destruct (su_running s) eqn:Hr; cbn [orb]; [done|]. destruct (su_direct s) eqn:Hd; cbn [orb]; [done|].
    destruct direct; cbn [negb]; [|done]. apply safe_assoc, safe_call; [by intros ?|]. intros result.
    destruct (decide (result = WL_OK)) as [->|Hne]; apply safe_ret_bind, safe_ret.
    + split; [|split; [|split]]; rewrite ?count_calls_app, ?told_snoc, ?H1, ?H2, ?H3; cbn; rewrite ?Hs, ?Hr; done.
    + apply setup_same; [done|done|cbn; by rewrite bool_decide_false|by rewrite told_snoc].
  - apply safe_ret. unfold setCallbacks. destruct (su_initialized s) eqn:Hs; cbn [negb orb]; [|done].
    destruct (su_running s) eqn:Hr; [done|]. split; [|split; [|split]]; cbn; rewrite ?H1, ?H2, ?H3, ?Hs, ?Hr; done.
  - eapply safe_bind; [by apply start_safe|]. intros h' [st s'] Hs. exact Hs.
  - unfold setup_stop. apply safe_call; [done|]. intros []. destruct (su_initialized s) eqn:Hs; cbn [negb].
    + apply safe_call.
      { intros ?. cbn. by rewrite count_calls_app, H1. }
      intros []. apply safe_ret. split; [|split; [|split]]; rewrite ?count_calls_app, ?told_snoc, ?H1, ?H2; cbn; rewrite ?told_snoc, ?Hs, ?Nat.add_0_r; try done.
    + apply safe_ret. assert (su_running s = false) as Hr.
      { destruct (su_running s) eqn:Hr; [|done]. discriminate (H4 (or_introl eq_refl)). }
      split; [|split; [|split]]; rewrite ?count_calls_app, ?told_snoc, ?H1, ?H2; cbn; rewrite ?Hs, ?Hr, ?Nat.add_0_r; first [done|by rewrite Hr in H4].
Qed.

(** An endpoint is set up in order.  Whatever its users call, in whatever order,
    and whatever the library answers: the library is initialised once, and its
    owner is started only after that; a transport is attached at most once, to an
    initialised endpoint that is not running; the upgrade client has last been told
    that the endpoint runs exactly when it does; and an endpoint that runs, has a
    transport or has callbacks is an initialised one. *)
Theorem setup_in_order ops l s :
  runs (do_ops ops setup0) l s ->
  (forall l1 ev l2, l = l1 ++ ev :: l2 -> setup_allowed l1 ev) /\ setup_inv l s.
Proof.
  assert (forall h s, setup_inv h s -> safe setup_allowed h (do_ops ops s) setup_inv) as Hall.
  { induction ops as [|o ops IH]; intros h s' Hi; [done|]. cbn [do_ops].
    eapply safe_bind; [by apply do_op_safe|]. intros h' s'' Hi'. by apply IH. }
  intros Hr. refine (safe_runs _ _ _ _ _ _ (Hall [] setup0 _) Hr).
  split; [done|]. split; [done|]. split; [done|]. intros [?|[?|[? ?]]]; done.
Qed.

(** Initialised, attached, started in vain, started, stopped. *)
Definition sample_setup_trace : list (event setup_call) :=
  [Event ConfigDefaults WL_OK; Event UpgradeConfigure tt; Event (InitConfig 3 50) WL_OK; Event UpgradeAttach tt;
   Event SetServices WL_OK; Event SetPolicy WL_OK; Event AttachPump WL_OK; Event ExecutorInitialize WL_OK;
   Event TransportAttach WL_OK; Event (UpgradeConnected true) tt; Event ExecutorStart WL_ERR_NO_MEM;
   Event (UpgradeConnected false) tt; Event (UpgradeConnected true) tt; Event ExecutorStart WL_OK;
   Event (UpgradeConnected false) tt; Event ExecutorStop tt].
Lemma setup_in_order_witness :
  exists s, runs (do_ops [DoInitialize 3 50; DoAttach true; DoStart; DoStart; DoAttach true; DoStop] setup0) sample_setup_trace s /\
    su_initialized s = true /\ setup_inv sample_setup_trace s.
Proof.
  assert (exists s, runs (do_ops [DoInitialize 3 50; DoAttach true; DoStart; DoStart; DoAttach true; DoStop] setup0) sample_setup_trace s /\
    su_initialized s = true) as (s & Hr & Hs).
  { eexists {| su_initialized := true; su_running := false; su_direct := true; su_callbacks := None;
      su_capabilities := 0; su_dispatch_calls := 0; su_dispatch_errors := 0 |}. split; [|reflexivity].
    unfold sample_setup_trace. run_trace. }
  exists s. split; [exact Hr|]. split; [exact Hs|]. exact (proj2 (setup_in_order _ _ _ Hr)).
Defined.

(** ** Feeding bytes *)

(** What was offered, and how much of it was taken. *)
Definition offers (ev : event setup_call) : list (bytes * Z) :=
  match ev with
  | @Event _ R c a =>
      match c in setup_call R return R -> list (bytes * Z) with
      | ExecutorFeed data => fun r => [(data, snd r)]
      | _ => fun _ => []
      end a
  end.
(** Each offer is what the offers before it left of the data. *)
Fixpoint follows (data : bytes) (l : list (bytes * Z)) : Prop :=
  match l with
  | [] => True
  | (offered, accepted) :: l => offered = data /\ data <> [] /\ follows (drop (Z.to_nat accepted) data) l
  end.

(** Bytes are fed in order, and feeding ends.  Every offer to the link is what
    the offers before it left of the data, so that nothing is skipped or fed
    twice; and when the link never takes less than no byte, there are at most as
    many offers as bytes: the loop returns. *)
Theorem bytes_fed_in_order fuel data l r :
  runs (s_feedBytes fuel data) l r ->
  follows data (flat_map offers l) /\
  ((length data < fuel)%nat -> Forall (fun '(_, accepted) => 0 <= accepted) (flat_map offers l) -> r = Some tt).
Proof.
  revert data l. induction fuel as [|fuel IH]; intros data l; cbn [s_feedBytes].
  - intros [-> <-]. split; [done|]. lia.
  - destruct data as [|b data]; [by intros [-> <-]|]. intros Hr. unfold feedBytes in Hr.
    apply runs_bind in Hr as (l1 & l2 & [st accepted] & -> & H1 & Hr).
    step_call H1 answer. destruct answer as [result accepted']. apply runs_ret in H1 as [-> [= <- <-]].
    destruct (negb _ || _) eqn:Hend; [destruct Hr as [-> <-]; by repeat split|].
    apply orb_false_iff in Hend as [_ Hne%Z.eqb_neq]. apply IH in Hr as [Hf Hr].
    split; [by repeat split|]. intros Hlt Hpos. cbn [flat_map app offers] in Hpos. apply Forall_cons_1 in Hpos as [Hacc Hpos].
    apply Hr; [|done]. rewrite length_drop. cbn [snd] in Hacc. cbn in *. lia.
Qed.

Lemma bytes_fed_in_order_witness :
  let l := [Event (ExecutorFeed [1; 2; 3]) (WL_OK, 2); Event (ExecutorFeed [3]) (WL_OK, 1)] in
  runs (s_feedBytes 4 [1; 2; 3]) l (Some tt) /\ follows [1; 2; 3] (flat_map offers l).
Proof.
  intros l. assert (runs (s_feedBytes 4 [1; 2; 3]) l (Some tt)) as Hr by (unfold l; run_trace).
  split; [exact Hr|]. exact (proj1 (bytes_fed_in_order _ _ _ _ Hr)).
Defined.
