(* ===== verification/MPCSolver.v ===== *)
(** * The position controller: its solver

    [include/florid/mpc/CartesianMPC.hpp] with [generated/WillowMPCTraits.hpp]:
    the wrapper around the generated solver, which seeds it, runs it, and hands
    out only what it has checked.  The calls are those to the solver and to the
    functions of acados on its memory; what they answer is not assumed.  A
    [float] is the [double] of its value, except in commands and measurements,
    where it is its bit pattern. *)

From Stdlib Require Import String SpecFloat.
From stdpp Require Import strings pretty.
From S2P Require Import Prelude DeviceTypes Commands Prog ArmImpl Arith MPCTrajectory MPCSession.

(** ** Single precision *)

Definition float_op (op : Z -> Z -> SpecFloat.spec_float -> SpecFloat.spec_float -> SpecFloat.spec_float)
    (x y : double) : double := widen (op 24 128 (narrow x) (narrow y)).
Definition fadd : double -> double -> double := float_op SpecFloat.SFadd.
Definition fmul : double -> double -> double := float_op SpecFloat.SFmul.
Definition fdiv : double -> double -> double := float_op SpecFloat.SFdiv.

(** ** The model's constants ([WillowMPCTraits]) *)

Definition kNX : nat := 12.
Definition kNU : nat := 6.
Definition kDOF : nat := 6.
Definition kHorizon : nat := 5.
Definition kDt_f : double := float_decimal 2 2.
Definition kQLower : list double :=
  [opp (float_decimal 314 2); of_Z 0; of_Z 0; opp (float_decimal 13 1); opp (float_decimal 157 2);
   opp (float_decimal 157 2)].
Definition kQUpper : list double :=
  [float_decimal 314 2; float_decimal 314 2; float_decimal 314 2; float_decimal 13 1; float_decimal 157 2;
   float_decimal 157 2].
Definition kTauLimit : list double :=
  [of_Z 5; of_Z 5; of_Z 5; of_Z 3; of_Z 3; of_Z 3].
Definition kDqLimit : list double :=
  [float_decimal 1248 2; float_decimal 3744 3; float_decimal 3744 3; float_decimal 1248 2;
   float_decimal 1248 2; float_decimal 1248 2].

(** ** Calls *)

Inductive ocp_call : Type -> Type :=
| CreateCapsule : ocp_call bool                       (* [false]: null *)
| AcadosCreate : ocp_call Z
| AcadosFree : ocp_call unit
| FreeCapsule : ocp_call unit
| Gravity (x : list double) : ocp_call (Z * list double)
| ConstraintsSet (stage : nat) (field : string) (v : list double) : ocp_call unit
| OutSet (stage : nat) (field : string) (v : list double) : ocp_call unit
| OutGet (stage : nat) (field : string) : ocp_call (list double)
| CostSet (stage : nat) (yref : list double) : ocp_call unit
| AcadosSolve : ocp_call Z
| ResetQpMemory : ocp_call unit.

(** ** State and exceptions *)

Record MPCConfig := { cfg_current_limit_norm : double; cfg_velocity_excitation : double }.

(** [CartesianMPCSolver] with the two members of its capsule that the wrapper
    uses. *)
Record CartesianMPCSolver := {
  m_cfg : MPCConfig;
  m_status : Z;
  warm_started : bool;
  gravity_reference : list double
}.

Inductive solver_error := Raised (e : exception) | BadAlloc.

Definition solver (A : Type) : Type := CartesianMPCSolver -> prog ocp_call (CartesianMPCSolver * (solver_error + A)).
#[export] Instance solver_ret : MRet solver := fun A a s => mret (s, inr a).
#[export] Instance solver_bind : MBind solver := fun A B f p s =>
  out ← p s; match snd out with inl e => mret (fst out, inl e) | inr a => f a (fst out) end.
Definition raise {A} (e : exception) : solver A := fun s => mret (s, inl (Raised e)).
Definition ocp {R} (c : ocp_call R) : solver R := fun s => r ← call c; mret (s, inr r).
Definition read_s {A} (f : CartesianMPCSolver -> A) : solver A := fun s => mret (s, inr (f s)).
Definition set_status (n : Z) : solver unit := fun s =>
  mret ({| m_cfg := m_cfg s; m_status := n; warm_started := warm_started s;
           gravity_reference := gravity_reference s |}, inr tt).
Definition set_warm (b : bool) : solver unit := fun s =>
  mret ({| m_cfg := m_cfg s; m_status := m_status s; warm_started := b;
           gravity_reference := gravity_reference s |}, inr tt).
Definition set_gravity (g : list double) : solver unit := fun s =>
  mret ({| m_cfg := m_cfg s; m_status := m_status s; warm_started := warm_started s;
           gravity_reference := g |}, inr tt).

(** A loop over stages. *)
Fixpoint for_stages (l : list nat) (body : nat -> solver unit) : solver unit :=
  match l with [] => mret tt | i :: l => _ ← body i; for_stages l body end.

(** ** The traits *)

(** [destroy] and [create]; [None] when it throws [std::bad_alloc]. *)
Definition destroy : prog ocp_call unit := _ ← call AcadosFree; call FreeCapsule.
Definition create : prog ocp_call (solver_error + unit) :=
  made ← call CreateCapsule;
  if negb made then mret (inl BadAlloc)
  else
    status ← call AcadosCreate;
    if negb (status =? 0) then
      _ ← destroy;
      mret (inl (Raised (ControlException ("MPC initialization failed: " +:+ pretty status))))
    else mret (inr tt).

Definition clamp_torque (g : list double) : list double :=
  map (fun i => clamp (at_joint g i) (opp (at_joint kTauLimit i)) (at_joint kTauLimit i)) (seq 0 kNU).

(** [setInitialState]: the measurement bounds stage 0; the guess is the previous
    prediction, one stage on, or the measurement everywhere. *)
Definition setInitialState (x : list double) : solver unit :=
  '(failed, gravity) ← ocp (Gravity x);
  _ ← set_gravity gravity;
  if negb (failed =? 0) then raise (ControlException "MPC gravity evaluation failed")
  else
    _ ← ocp (ConstraintsSet 0 "lbx" x);
    _ ← ocp (ConstraintsSet 0 "ubx" x);
    warm ← read_s warm_started;
    _ ← (if negb warm then
           for_stages (seq 0 (S kHorizon)) (fun i =>
             _ ← ocp (OutSet i "x" x);
             if (i <? kHorizon)%nat then ocp (OutSet i "u" (clamp_torque gravity)) else mret tt)
         else
           for_stages (seq 0 kHorizon) (fun i =>
             next_x ← ocp (OutGet (S i) "x");
             _ ← ocp (OutSet i "x" next_x);
             if (S i <? kHorizon)%nat then
               next_u ← ocp (OutGet (S i) "u");
               ocp (OutSet i "u" next_u)
             else mret tt));
    ocp (OutSet 0 "x" x).

(** [setReference]: the position, no velocity, and the torque of gravity. *)
Definition setReference (position : list double) : solver unit :=
  gravity ← read_s gravity_reference;
  for_stages (seq 0 (S kHorizon)) (fun i => ocp (CostSet i (position ++ repeat (of_Z 0) kDOF ++ gravity))).

Definition traits_solve : solver Z :=
  status ← ocp AcadosSolve;
  _ ← set_warm (status =? 0);
  _ ← (if negb (status =? 0) then ocp ResetQpMemory else mret tt);
  mret status.

Definition resetWarmStart : solver unit := _ ← set_warm false; ocp ResetQpMemory.

Definition to_float (x : double) : double := widen (narrow x).
Definition getState (stage : nat) : solver (list double) := ocp (OutGet stage "x").
Definition getOptimalQ : solver (list double) :=
  x ← getState 1; mret (map (fun i => to_float (at_joint x i)) (seq 0 kDOF)).
Definition getOptimalDq : solver (list double) :=
  x ← getState 1; mret (map (fun i => to_float (at_joint x (kDOF + i))) (seq 0 kDOF)).

Definition traits_setVelocityLimit (limit : double) : solver unit :=
  let speed := map (fun i => min limit (at_joint kDqLimit i)) (seq 0 kDOF) in
  for_stages (seq 1 kHorizon) (fun i =>
    _ ← ocp (ConstraintsSet i "lbx" (kQLower ++ map opp speed));
    ocp (ConstraintsSet i "ubx" (kQUpper ++ speed))).

(** ** The solver *)

(** The constructor; the solver, or what it throws. *)
Definition config_accepted (c : MPCConfig) : bool :=
  negb (negb (finite (cfg_current_limit_norm c)) || leb (cfg_current_limit_norm c) (of_Z 0) ||
        gtb (cfg_current_limit_norm c) (of_Z 1) || negb (finite (cfg_velocity_excitation c)) ||
        ltb (cfg_velocity_excitation c) (of_Z 1)).
Definition new_solver (c : MPCConfig) : prog ocp_call (solver_error + CartesianMPCSolver) :=
  if negb (config_accepted c)
  then mret (inl (Raised (CommandException "Invalid MPC current limit or velocity excitation")))
  else
    made ← create;
    mret match made with
         | inl e => inl e
         | inr _ => inr {| m_cfg := c; m_status := -1; warm_started := false;
                           gravity_reference := repeat (of_Z 0) kNU |}
         end.

Definition setVelocityLimit (limit : double) : solver unit :=
  if negb (finite limit) || leb limit (of_Z 0)
  then raise (CommandException "MPC velocity limit must be positive and finite")
  else traits_setVelocityLimit limit.

Definition floats (l : list Z) : list double := map double_of_float l.

Definition holdPosition (q : list Z) : solver JointPVT :=
  if negb (s_allFinite q) then raise (CommandException "MPC hold state must be finite")
  else
    c ← read_s m_cfg;
    mret {| pvt_q := q; pvt_dq_limit := map float_of_double kDqLimit;
            pvt_current_limit_norm := repeat (float_of_double (cfg_current_limit_norm c)) kDOF |}.

(** A joint of the solution is not to be used (lines 138-141), in [float]s. *)
Definition f1e4 : double := float_decimal 1 4.
Definition bad_joint (q dq : list double) (i : nat) : bool :=
  negb (finite (at_joint q i)) || negb (finite (at_joint dq i)) ||
  ltb (at_joint q i) (float_sub (at_joint kQLower i) f1e4) ||
  gtb (at_joint q i) (fadd (at_joint kQUpper i) f1e4) ||
  gtb (abs (at_joint dq i)) (fadd (at_joint kDqLimit i) f1e4).

(** The commanded position and the ceiling of the speed (lines 146-151). *)
Definition command_q (q : list double) (i : nat) : double :=
  clamp (at_joint q i) (at_joint kQLower i) (at_joint kQUpper i).
Definition speed_limit (c : MPCConfig) (measured q dq : list double) (i : nat) : double :=
  let speed := max (abs (at_joint dq i))
    (fdiv (abs (float_sub (command_q q i) (at_joint measured i))) kDt_f) in
  min (at_joint kDqLimit i) (max (fmul speed (cfg_velocity_excitation c)) f1e4).

(** [T_ref] is not a homogeneous transform. *)
Definition not_homogeneous (T : list double) : bool :=
  let off i := gtb (abs (at_joint T i)) (float_decimal 1 5) in
  off 3%nat || off 7%nat || off 11%nat ||
  gtb (abs (float_sub (at_joint T 15) (of_Z 1))) (float_decimal 1 5).

Definition mpc_solve (q dq T : list Z) : solver JointPVT :=
  if negb (s_allFinite q && s_allFinite dq)
  then raise (CommandException "MPC joint state must be finite")
  else if negb (s_allFinite T) then raise (CommandException "MPC target must be finite")
  else if not_homogeneous (floats T)
  then raise (CommandException "MPC target must be a column-major homogeneous transform")
  else
    _ ← setInitialState (floats q ++ floats dq);
    _ ← setReference (take 3 (drop 12 (floats T)));
    status ← traits_solve;
    _ ← set_status status;
    if negb (status =? 0) then holdPosition q
    else
      s_q ← getOptimalQ;
      s_dq ← getOptimalDq;
      if existsb (bad_joint s_q s_dq) (seq 0 kDOF) then
        _ ← set_status (-2);
        _ ← resetWarmStart;
        holdPosition q
      else
        c ← read_s m_cfg;
        mret {| pvt_q := map (fun i => float_of_double (command_q s_q i)) (seq 0 kDOF);
                pvt_dq_limit := map (fun i => float_of_double (speed_limit c (floats q) s_q s_dq i)) (seq 0 kDOF);
                pvt_current_limit_norm := repeat (float_of_double (cfg_current_limit_norm c)) kDOF |}.

(** A joint of a predicted state is not to be used (lines 45-48), in
    [double]s. *)
Definition d1e5 : double := decimal 1 5.
Definition bad_state (x : list double) (i : nat) : bool :=
  negb (finite (at_joint x i)) || negb (finite (at_joint x (kDOF + i))) ||
  ltb (at_joint x i) (sub (at_joint kQLower i) d1e5) ||
  gtb (at_joint x i) (add (at_joint kQUpper i) d1e5) ||
  gtb (abs (at_joint x (kDOF + i))) (add (at_joint kDqLimit i) d1e5).

(** The joints of one stage, up to one that is bad. *)
Fixpoint knot_joints (x : list double) (joints : list nat) (k : MPCJointState) : bool * MPCJointState :=
  match joints with
  | [] => (true, k)
  | i :: joints =>
      if bad_state x i then (false, k)
      else knot_joints x joints {| js_q := <[i := command_q x i]> (js_q k);
                               js_dq := <[i := at_joint x (kDOF + i)]> (js_dq k) |}
  end.

Fixpoint predict_stages (stages : list nat) (out : list MPCJointState) : solver (bool * list MPCJointState) :=
  match stages with
  | [] => mret (true, out)
  | stage :: stages =>
      x ← getState stage;
      let '(ok, k) := knot_joints x (seq 0 kDOF) (nth stage out state0) in
      let out := <[stage := k]> out in
      if ok then predict_stages stages out
      else
        _ ← set_status (-2);
        _ ← resetWarmStart;
        mret (false, out)
  end.

Definition predict (q dq T : list Z) (out : list MPCJointState) : solver (bool * list MPCJointState) :=
  _ ← mpc_solve q dq T;
  status ← read_s m_status;
  if negb (status =? 0) then mret (false, out)
  else predict_stages (seq 0 (S kHorizon)) out.

Definition lastStatus : solver Z := read_s m_status.

(** ** The position controller: what its solver hands out

    On every run, whatever the solver and its memory answer: a prediction that
    is handed out was checked at every stage and is within the limits of the
    joints, a command is too, and a solve starts from the measurement. *)

(** *** Within limits *)

(** A value of a joint: a number not below its lower limit and not above its
    upper one; and a speed that is a number and does not exceed its limit by more
    than the tolerance. *)
Definition position_inside (q : double) (i : nat) : Prop :=
  finite q = true /\ ltb q (at_joint kQLower i) = false /\ ltb (at_joint kQUpper i) q = false.
Definition speed_inside (tolerance dq : double) (i : nat) : Prop :=
  finite dq = true /\ ltb (add (at_joint kDqLimit i) tolerance) (abs dq) = false.

Lemma limits_ordered i : (i < 6)%nat ->
  position_inside (at_joint kQLower i) i /\ position_inside (at_joint kQUpper i) i.
Proof. intros Hi. do 6 (destruct i as [|i]; [by vm_compute|]). lia. Qed.

Lemma command_q_inside x i : (i < 6)%nat -> finite (at_joint x i) = true -> position_inside (command_q x i) i.
Proof.
  intros Hi Hx. unfold command_q, clamp. destruct (limits_ordered i Hi) as [Hlo Hhi].
  destruct (ltb (at_joint x i) (at_joint kQLower i)) eqn:H1; [done|].
  destruct (ltb (at_joint kQUpper i) (at_joint x i)) eqn:H2; [done|]. by repeat split.
Qed.

(** *** The joints of a stage *)

Definition shaped (k : MPCJointState (F:=double)) : Prop := length (js_q k) = 6%nat /\ length (js_dq k) = 6%nat.

(** The knot is the state that was read, of which no joint is bad. *)
Definition knot_of (x : list double) (k : MPCJointState) : Prop :=
  forall i, (i < 6)%nat ->
    bad_state x i = false /\ at_joint (js_q k) i = command_q x i /\
    at_joint (js_dq k) i = at_joint x (kDOF + i).

Lemma knot_joints_ok x k : shaped k ->
  shaped (knot_joints x (seq 0 kDOF) k).2 /\
  ((knot_joints x (seq 0 kDOF) k).1 = true -> knot_of x (knot_joints x (seq 0 kDOF) k).2).
Proof.
  assert (forall n a k', shaped k' -> (a + n)%nat = 6%nat ->
    let r := knot_joints x (seq a n) k' in
    shaped r.2 /\
    (r.1 = true -> forall i, (i < 6)%nat ->
      if (i <? a)%nat then at_joint (js_q r.2) i = at_joint (js_q k') i /\ at_joint (js_dq r.2) i = at_joint (js_dq k') i
      else bad_state x i = false /\ at_joint (js_q r.2) i = command_q x i /\
           at_joint (js_dq r.2) i = at_joint x (kDOF + i))) as Hall.
  { induction n as [|n IH]; intros a k' [Hq Hdq] Ha; cbn [seq knot_joints].
    - split; [done|]. intros _ i Hi. destruct (Nat.ltb_spec i a); [done|lia].
    - destruct (bad_state x a) eqn:Hb; [done|].
      set (k1 := {| js_q := <[a := command_q x a]> (js_q k'); js_dq := <[a := at_joint x (kDOF + a)]> (js_dq k') |}).
      assert (shaped k1) as Hk1 by (split; cbn; by rewrite length_insert).
      destruct (IH (S a) k1 Hk1 ltac:(lia)) as [Hs Hr]. split; [done|]. intros Ht i Hi. specialize (Hr Ht i Hi).
      destruct (Nat.ltb_spec i (S a)).
      + destruct Hr as [-> ->]. unfold k1, at_joint. cbn [js_q js_dq].
        rewrite !nth_lookup. destruct (Nat.ltb_spec i a).
        * by rewrite !list_lookup_insert_ne by lia.
        * replace i with a by lia. rewrite !list_lookup_insert_eq by lia. done.
      + by destruct (Nat.ltb_spec i a); [lia|]. }
  intros Hk. destruct (Hall 6%nat 0%nat k Hk eq_refl) as [Hs Hr]. split; [done|].
  intros Ht i Hi. exact (Hr Ht i Hi).
Qed.

(** What a knot that was handed out satisfies. *)
Lemma knot_inside x k i : knot_of x k -> (i < 6)%nat ->
  position_inside (at_joint (js_q k) i) i /\ speed_inside d1e5 (at_joint (js_dq k) i) i.
Proof.
  intros Hk Hi. destruct (Hk i Hi) as (Hb & -> & ->). unfold bad_state, gtb in Hb.
  repeat (apply orb_false_iff in Hb as [Hb ?]). apply negb_false_iff in Hb.
  split; [by apply command_q_inside|]. by split; [apply negb_false_iff|].
Qed.

(** *** Runs of the solver *)

Lemma solver_bind_safe {A B} h (p : solver A) (f : A -> solver B) s mid post :
  safe any h (p s) mid ->
  (forall h' s' e, mid h' (s', inl e) -> post h' (s', inl e)) ->
  (forall h' s' a, mid h' (s', inr a) -> safe any h' (f a s') post) ->
  safe any h ((p ≫= f) s) post.
Proof.
  intros Hp He Hf.
  change ((p ≫= f) s) with
    (p s ≫= fun out => match snd out with inl e => mret (fst out, inl e) | inr a => f a (fst out) end).
  eapply safe_bind; [exact Hp|]. intros h' [s' [e|a]] Hm; cbn; [by apply He|by apply Hf].
Qed.

Lemma ocp_safe {R A} h (c : ocp_call R) (f : R -> solver A) s post :
  (forall r, safe any (h ++ [Event c r]) (f r s) post) -> safe any h ((ocp c ≫= f) s) post.
Proof. intros Hf r. split; [done|]. apply Hf. Qed.

Lemma ocp_tail {R} h (c : ocp_call R) s post :
  (forall r, post (h ++ [Event c r]) (s, inr r)) -> safe any h (ocp c s) post.
Proof. intros Hf r. split; [done|]. apply Hf. Qed.

Lemma solver_runs_bind {A B} (p : solver A) (f : A -> solver B) s l s' r :
  runs ((p ≫= f) s) l (s', r) -> exists l1 l2 s1 r1, l = l1 ++ l2 /\ runs (p s) l1 (s1, r1) /\
    match r1 with inl e => l2 = [] /\ (s', r) = (s1, inl e) | inr a => runs (f a s1) l2 (s', r) end.
Proof.
  change ((p ≫= f) s) with
    (p s ≫= fun out => match snd out with inl e => mret (fst out, inl e) | inr a => f a (fst out) end).
  intros (l1 & l2 & [s1 [e|a]] & -> & H1 & H2)%runs_bind; exists l1, l2, s1; [exists (inl e)|exists (inr a)].
  - apply runs_ret in H2 as [-> H2]. by repeat split.
  - done.
Qed.

(** A part of which only the history matters: it grows. *)
Lemma grows {A} h (p : prog ocp_call A) : safe any h p (fun h' _ => exists l, h' = h ++ l).
Proof.
  apply (safe_only (fun _ => True)); [|done|by intros l _ _; exists l].
  induction p as [a|R c k IH]; [done|]. by intros r.
Qed.

(** The stages that are read one after another. *)
Lemma stages_safe n : forall a h (out : list MPCJointState) s,
  (a + n)%nat = 6%nat -> length out = 6%nat -> Forall shaped out ->
  (forall stage, (stage < a)%nat -> exists x, In (Event (OutGet stage "x"%string) x) h /\ knot_of x (nth stage out state0)) ->
  m_status s = 0 ->
  safe any h (predict_stages (seq a n) out s) (fun h' '(s', r) =>
    match r with
    | inr (true, knots) => m_status s' = 0 /\ length knots = 6%nat /\
        forall stage, (stage < 6)%nat -> exists x, In (Event (OutGet stage "x"%string) x) h' /\ knot_of x (nth stage knots state0)
    | _ => m_status s' <> 0
    end).
Proof.
  induction n as [|n IH]; intros a h out s Ha Hl Hsh Hgood Hs; cbn [seq predict_stages].
  - apply safe_ret. split; [done|]. split; [done|]. intros stage Hst. apply Hgood. lia.
  - apply ocp_safe. intros x.
    assert (shaped (nth a out state0)) as Hk.
    { rewrite List.Forall_forall in Hsh. apply Hsh, nth_In. lia. }
    destruct (knot_joints_ok x _ Hk) as [Hshk Hok]. destruct (knot_joints x (seq 0 kDOF) (nth a out state0)) as [ok k].
    cbn [fst snd] in *. destruct ok.
    + apply IH; [lia|by rewrite length_insert| | |done].
      * by apply Forall_insert.
      * intros stage Hst. destruct (decide (stage = a)) as [->|Hne].
        -- exists x. split; [rewrite in_app_iff; right; by left|].
           rewrite nth_lookup, list_lookup_insert_eq by lia. by apply Hok.
        -- destruct (Hgood stage ltac:(lia)) as (y & Hy & Hky). exists y. split; [rewrite in_app_iff; by left|].
           rewrite nth_lookup, list_lookup_insert_ne by lia. by rewrite <- nth_lookup.
    + cbn. intros r. by split.
Qed.

Lemma predict_guarded_runs q dq T out s l s' ok knots :
  length out = 6%nat -> Forall shaped out ->
  runs (predict q dq T out s) l (s', inr (ok, knots)) ->
  if ok : bool then
    m_status s' = 0 /\ length knots = 6%nat /\
    forall stage i, (stage < 6)%nat -> (i < 6)%nat ->
      position_inside (at_joint (js_q (nth stage knots state0)) i) i /\
      speed_inside d1e5 (at_joint (js_dq (nth stage knots state0)) i) i /\
      exists x, In (Event (OutGet stage "x"%string) x) l /\
        at_joint (js_q (nth stage knots state0)) i = command_q x i /\
        at_joint (js_dq (nth stage knots state0)) i = at_joint x (kDOF + i)
  else m_status s' <> 0.
Proof.
  intros Hl Hsh Hr.
  assert (safe any [] (predict q dq T out s) (fun h' '(s', r) =>
    match r with
    | inl _ => True
    | inr (true, knots) => m_status s' = 0 /\ length knots = 6%nat /\
        forall stage, (stage < 6)%nat -> exists x, In (Event (OutGet stage "x"%string) x) h' /\ knot_of x (nth stage knots state0)
    | inr (false, _) => m_status s' <> 0
    end)) as Hsafe.
  { unfold predict. eapply solver_bind_safe; [by apply grows|done|]. intros h1 s1 _ _.
    apply (solver_bind_safe _ (read_s m_status) _ _ (fun h' '(s', r) => h' = h1 /\ s' = s1 /\ r = inr (m_status s1)));
      [by apply safe_ret|by intros ? ? ? (_ & _ & ?)|].
    intros h2 s2 status (-> & -> & [= ->]). destruct (Z.eqb_spec (m_status s1) 0) as [H0|H0]; cbn [negb].
    - eapply safe_mono; [by apply (stages_safe 6 0); [| | |intros ? Hlt; lia|]|].
      intros h3 [s3 [e|[[] k]]]; done.
    - by apply safe_ret. }
  destruct (safe_runs _ _ _ _ _ _ Hsafe Hr) as [_ Hpost]. cbn [app] in Hpost. destruct ok; [|done].
  destruct Hpost as (H0 & H6 & Hk). split; [done|]. split; [done|]. intros stage i Hst Hi.
  destruct (Hk stage Hst) as (x & Hx & Hkx). destruct (knot_inside x _ i Hkx Hi) as [Hp Hv].
  destruct (Hkx i Hi) as (_ & Hq & Hd). split; [done|]. split; [done|]. by exists x.
Qed.

(** A prediction is handed out only when it was checked.  On every run of
    [predict] that returns [true], the last status is success, and each joint of
    each of the six stages is what the solver's memory held for that stage: a
    number, its position brought into the limits of the joint, its speed within
    the limit and the tolerance; when [predict] returns [false], the status is not
    success, so that the plan is not published. *)
Theorem predict_guarded q dq T out s l s' ok knots :
  length out = 6%nat -> Forall shaped out ->
  runs (predict q dq T out s) l (s', inr (ok, knots)) ->
  if ok : bool then
    m_status s' = 0 /\ length knots = 6%nat /\
    forall stage i, (stage < 6)%nat -> (i < 6)%nat ->
      position_inside (at_joint (js_q (nth stage knots state0)) i) i /\
      speed_inside d1e5 (at_joint (js_dq (nth stage knots state0)) i) i /\
      exists x, In (Event (OutGet stage "x"%string) x) l /\
        at_joint (js_q (nth stage knots state0)) i = command_q x i /\
        at_joint (js_dq (nth stage knots state0)) i = at_joint x (kDOF + i)
  else m_status s' <> 0.
Proof. apply predict_guarded_runs. Qed.

(** *** Commands *)

(** The position that is commanded for a joint and the ceiling of its speed are
    within the limits. *)
Definition command_inside (cmd : JointPVT) (i : nat) : Prop :=
  (exists v, nth i (pvt_q cmd) 0 = float_of_double v /\ position_inside v i) /\
  (exists w, nth i (pvt_dq_limit cmd) 0 = float_of_double w /\ ltb (at_joint kDqLimit i) w = false).

Lemma dq_limit_self i : (i < 6)%nat -> ltb (at_joint kDqLimit i) (at_joint kDqLimit i) = false.
Proof. intros Hi. do 6 (destruct i as [|i]; [by vm_compute|]). lia. Qed.

Lemma nth_seq_map (f : nat -> Z) i : (i < 6)%nat -> nth i (map f (seq 0 kDOF)) 0 = f i.
Proof. intros Hi. do 6 (destruct i as [|i]; [done|]). lia. Qed.

Lemma SFltb_asym x y : SFltb x y = true -> SFltb y x = false.
Proof.
  unfold SFltb, SFcompare. destruct x as [[]|[]| |[] mx ex], y as [[]|[]| |[] my ey]; try done;
    change (Pos.compare_cont Eq mx my) with (Pos.compare mx my);
    change (Pos.compare_cont Eq my mx) with (Pos.compare my mx);
    rewrite (Z.compare_antisym ex ey), (Pos.compare_antisym mx my);
    by destruct (ex ?= ey), (mx ?= my)%positive.
Qed.

Lemma speed_limit_inside c m q dq i : (i < 6)%nat -> ltb (at_joint kDqLimit i) (speed_limit c m q dq i) = false.
Proof.
  intros Hi. unfold speed_limit, min.
  match goal with |- context [if ltb ?w ?l then _ else _] => destruct (ltb w l) eqn:Hw end;
    [by apply SFltb_asym|by apply dq_limit_self].
Qed.

Lemma hold_safe h q s : safe any h (holdPosition q s) (fun _ '(s', r) =>
  m_status s' = m_status s /\ match r with inr cmd => pvt_q cmd = q | inl _ => True end).
Proof. unfold holdPosition. destruct (negb _); by split. Qed.

Lemma optimal_safe h s p : p = getOptimalQ \/ p = getOptimalDq ->
  safe any h (p s) (fun _ '(s', r) => s' = s /\ exists q, r = inr q).
Proof. intros [-> | ->] x; (split; [done|]); by split; [|eexists]. Qed.

(** A command of the solver is safe.  On every run of [solve] that returns a
    command, either the last status is success, and each joint's position and
    speed ceiling are within its limits, or it is a failure, and the command
    holds the measured position; inputs that are not numbers, or no homogeneous
    transform, reach no solver. *)
Theorem solve_guarded q dq T s l s' r :
  runs (mpc_solve q dq T s) l (s', r) ->
  match r with
  | inr cmd =>
      (m_status s' = 0 /\ forall i, (i < 6)%nat -> command_inside cmd i) \/
      (m_status s' <> 0 /\ pvt_q cmd = q)
  | inl _ => True
  end /\
  (s_allFinite (q ++ dq ++ T) && negb (not_homogeneous (floats T)) = false -> l = [] /\ exists e, r = inl e).
Proof.
  intros Hr. split.
  2: { unfold mpc_solve in Hr. unfold s_allFinite in *. rewrite !forallb_app.
    destruct (forallb isfinite q); cbn in *; [|intros _; destruct Hr as [-> [= <- <-]]; split; [done|by eexists]].
    destruct (forallb isfinite dq); cbn in *; [|intros _; destruct Hr as [-> [= <- <-]]; split; [done|by eexists]].
    destruct (forallb isfinite T); cbn in *; [|intros _; destruct Hr as [-> [= <- <-]]; split; [done|by eexists]].
    destruct (not_homogeneous (floats T)); cbn in *; [|done].
    intros _; destruct Hr as [-> [= <- <-]]; split; [done|by eexists]. }
  assert (safe any [] (mpc_solve q dq T s) (fun _ '(s', r) =>
    match r with
    | inr cmd => (m_status s' = 0 /\ forall i, (i < 6)%nat -> command_inside cmd i) \/ (m_status s' <> 0 /\ pvt_q cmd = q)
    | inl _ => True
    end)) as Hsafe; [|exact (proj2 (safe_runs _ _ _ _ _ _ Hsafe Hr))].
  unfold mpc_solve. repeat (destruct (negb _) || destruct (not_homogeneous _)); try by apply safe_ret.
  all: eapply solver_bind_safe; [by apply grows|done|intros h1 s1 _ _].
  all: eapply solver_bind_safe; [by apply grows|done|intros h2 s2 _ _].
  all: eapply solver_bind_safe; [by apply grows|done|intros h3 s3 status _].
  all: apply (solver_bind_safe _ (set_status status) _ _ (fun _ '(s', _) => m_status s' = status)); [by apply safe_ret|done|].
  all: intros h4 s4 _ Hst; destruct (Z.eqb_spec status 0) as [->|Hne]; cbn [negb].
  all: try (eapply safe_mono; [by apply hold_safe|]; intros ? [s5 [|]] [H1 H2]; [done|]; right; split; congruence).
  all: eapply solver_bind_safe; [by apply optimal_safe; left|by intros ? ? ? [_ [? [=]]]|intros h5 s5 s_q [-> _]].
  all: eapply solver_bind_safe; [by apply optimal_safe; right|by intros ? ? ? [_ [? [=]]]|intros h6 s6 s_dq [-> _]].
  all: destruct (existsb (bad_joint s_q s_dq) (seq 0 kDOF)) eqn:Hbad.
  - apply (solver_bind_safe _ (set_status (-2)) _ _ (fun _ '(s', _) => m_status s' = -2)); [by apply safe_ret|done|].
    intros h7 s7 _ H7.
    apply (solver_bind_safe _ resetWarmStart _ _ (fun _ '(s', _) => m_status s' = -2)); [by intros []|done|].
    intros h8 s8 _ H8. eapply safe_mono; [by apply hold_safe|].
    intros ? [s9 [|]] [H1 H2]; [done|]. right. split; [congruence|done].
  - apply safe_ret. left. split; [done|]. intros i Hi. split.
    + exists (command_q s_q i). split; [by apply nth_seq_map|]. apply command_q_inside; [done|].
      apply Bool.not_true_iff_false in Hbad. rewrite existsb_exists in Hbad.
      destruct (finite (at_joint s_q i)) eqn:Hfin; [done|]. destruct Hbad. exists i.
      split; [apply in_seq; unfold kDOF; lia|]. unfold bad_joint. by rewrite Hfin.
    + exists (speed_limit (m_cfg s4) (floats q) s_q s_dq i).
      split; [exact (nth_seq_map _ i Hi)|by apply speed_limit_inside].
Qed.

(** *** The guess *)

(** What a run set the stages of the guess to, and what it read of them. *)
Definition sets_x (ev : event ocp_call) : list (nat * list double) :=
  match ev with
  | @Event _ R c _ => match c with OutSet i f v => if String.eqb f "x" then [(i, v)] else [] | _ => [] end
  end.
Definition gets_x (ev : event ocp_call) : list (nat * list double) :=
  match ev with
  | @Event _ R c a =>
      match c in ocp_call R return R -> list (nat * list double) with
      | OutGet i f => fun x => if String.eqb f "x" then [(i, x)] else []
      | _ => fun _ => []
      end a
  end.

(** One more call of a run that has been evaluated. *)
Ltac next_call H :=
  let r := fresh "r" in
  match type of H with match ?l with [] => _ | _ => _ end => destruct l as [|? l]; [done|] end;
  destruct H as (r & -> & H).

(** A solve starts from the measurement.  [setInitialState], when it returns,
    has set the first stage of the guess to the measurement, last; before it, a
    cold start sets every stage to the measurement, and a warm start sets each
    stage but the last to what it read of the next one. *)
Theorem guess_seeded x s l s' :
  runs (setInitialState x s) l (s', inr tt) ->
  flat_map sets_x l =
    (if warm_started s then map (fun '(i, v) => (pred i, v)) (flat_map gets_x l)
     else map (fun i => (i, x)) (seq 0 6)) ++ [(0%nat, x)] /\
  map fst (flat_map gets_x l) = (if warm_started s then [1; 2; 3; 4; 5]%nat else []) /\
  warm_started s' = warm_started s.
Proof.
  intros Hr. destruct s as [c status warm g].
  destruct warm; cbv -[Z.eqb clamp_torque app In at_joint] in Hr; next_call Hr; destruct r as [failed gravity];
    (destruct (failed =? 0); [|by destruct Hr]); repeat next_call Hr; destruct Hr as [-> [= <-]]; by repeat split.
Qed.

(** *** Sample runs *)

(** A solver that answers the state [x] for every stage, and [status]. *)
Definition memory_answer (status : Z) (x : list double) (R : Type) (c : ocp_call R) : unit -> R * unit :=
  match c in ocp_call R return unit -> R * unit with
  | CreateCapsule => fun u => (true, u)
  | AcadosCreate => fun u => (0, u)
  | Gravity _ => fun u => ((0, repeat (of_Z 0) 6), u)
  | OutGet _ _ => fun u => (x, u)
  | AcadosSolve => fun u => (status, u)
  | AcadosFree | FreeCapsule | ResetQpMemory => fun u => (tt, u)
  | ConstraintsSet _ _ _ | OutSet _ _ _ | CostSet _ _ => fun u => (tt, u)
  end.

Definition sample_solver : CartesianMPCSolver := {|
  m_cfg := {| cfg_current_limit_norm := float_decimal 3 1; cfg_velocity_excitation := float_decimal 12 1 |};
  m_status := -1; warm_started := true; gravity_reference := repeat (of_Z 0) 6 |}.

(** Half a radian in every joint, at rest; a target at the base. *)
Definition half : Z := 1056964608.
Definition sample_q : list Z := repeat half 6.
Definition sample_dq : list Z := repeat 0 6.
Definition sample_T : list Z := [1065353216; 0; 0; 0; 0; 1065353216; 0; 0; 0; 0; 1065353216; 0; 0; 0; 0; 1065353216].
Definition sample_state : list double := repeat (decimal 5 1) 6 ++ repeat (of_Z 0) 6.
Definition sample_run {A} (p : solver A) : list (event ocp_call) * (CartesianMPCSolver * (solver_error + A)) :=
  interp (memory_answer 0 sample_state) (p sample_solver) tt.

Lemma sample_runs {A} (p : solver A) r :
  snd (snd (sample_run p)) = r -> exists l s', runs (p sample_solver) l (s', r).
Proof.
  intros <-. unfold sample_run. exists (fst (interp (memory_answer 0 sample_state) (p sample_solver) tt)).
  exists (fst (snd (interp (memory_answer 0 sample_state) (p sample_solver) tt))).
  rewrite <- surjective_pairing. apply interp_runs.
Qed.

Definition sample_prediction : list (MPCJointState (F:=double)) :=
  repeat {| js_q := repeat (decimal 5 1) 6; js_dq := repeat (of_Z 0) 6 |} 6.
Lemma sample_predicts :
  snd (snd (sample_run (predict sample_q sample_dq sample_T (repeat state0 6)))) = inr (true, sample_prediction).
Proof. by vm_compute. Qed.

Lemma predict_guarded_witness : exists l s',
  runs (predict sample_q sample_dq sample_T (repeat state0 6) sample_solver) l (s', inr (true, sample_prediction)) /\
  m_status s' = 0 /\ position_inside (at_joint (js_q (nth 5 sample_prediction state0)) 1) 1.
Proof.
  destruct (sample_runs _ _ sample_predicts) as (l & s' & Hr). exists l, s'. split; [exact Hr|].
  assert (length (repeat (state0 (F:=double)) 6) = 6%nat) as Hl by reflexivity.
  assert (Forall shaped (repeat state0 6)) as Hsh by (repeat constructor).
  destruct (predict_guarded _ _ _ _ _ _ _ true _ Hl Hsh Hr) as (H0 & _ & Hk).
  split; [exact H0|]. apply (Hk 5%nat 1%nat); lia.
Defined.

(** From half a radian to half a radian, the command is half a radian. *)
Definition sample_command : JointPVT := {|
  pvt_q := sample_q; pvt_dq_limit := repeat 953267991 6; pvt_current_limit_norm := repeat 1050253722 6 |}.
Lemma sample_solves : snd (snd (sample_run (mpc_solve sample_q sample_dq sample_T))) = inr sample_command.
Proof. by vm_compute. Qed.

Lemma solve_guarded_witness : exists l s',
  runs (mpc_solve sample_q sample_dq sample_T sample_solver) l (s', inr sample_command) /\
  ((m_status s' = 0 /\ forall i, (i < 6)%nat -> command_inside sample_command i) \/
   (m_status s' <> 0 /\ pvt_q sample_command = sample_q)).
Proof.
  destruct (sample_runs _ _ sample_solves) as (l & s' & Hr). exists l, s'. split; [exact Hr|].
  exact (proj1 (solve_guarded _ _ _ _ _ _ _ Hr)).
Defined.

(** A measured state in place of a warm guess. *)
Lemma sample_seeds : snd (snd (sample_run (setInitialState sample_state))) = inr tt.
Proof. by vm_compute. Qed.
Lemma guess_seeded_witness : exists l s',
  runs (setInitialState sample_state sample_solver) l (s', inr tt) /\
  map fst (flat_map gets_x l) = [1; 2; 3; 4; 5]%nat.
Proof.
  destruct (sample_runs _ _ sample_seeds) as (l & s' & Hr). exists l, s'. split; [exact Hr|].
  exact (proj1 (proj2 (guess_seeded _ _ _ _ Hr))).
Defined.
