(* ===== verification/ArmMPC.v ===== *)
(** * The arm in the build with the position controller

    [src/ArmImpl.cpp] and [include/florid/detail/ArmImpl.hpp] under
    [FLORID_HAS_MPC]: the feedback in its mailboxes, the start of a session with
    its solver and its callbacks, and the control loop over poses; with the handle
    of [src/MPCSession.cpp], lines 34-41.  What the build shares with the default
    one is that of [ArmImpl.v]; the session is [MPCSession.v], the solver
    [MPCSolver.v]. *)

From Stdlib Require Import String.
From stdpp Require Import strings.
From S2P Require Import Prelude DeviceTypes Endpoint EndpointCalls Commands Prog ArmImpl MotorRegisters Arith MPCTrajectory MPCSession MPCSolver.

Open Scope list_scope.

(** ** Calls *)

(** The consumers of the feedback. *)
Inductive consumer := Planner | Output | Public.

Inductive marm_call : Type -> Type :=
| ArmCall {R} (c : arm_call R) : marm_call R
| OcpCall {R} (c : ocp_call R) : marm_call R
| MailboxRead (w : consumer) : marm_call (mailbox MPCMeasurement)
| MailboxPublish (w : consumer) (m : MPCMeasurement) : marm_call wl_status
| LoadFeedbackFailed : marm_call bool
| StoreFeedbackFailed : marm_call unit
| NewSession (c : MPCControlConfig) : marm_call bool  (* [false]: the constructor throws *)
| StopMPC : marm_call unit                             (* m_mpc->stop() *)
| SessionStop : marm_call unit
| SessionWrite (target : CartesianPose) (finished : bool) : marm_call (option exception)  (* what it throws *)
| SessionStatus : marm_call MPCControlStatus.

(** ** State *)

(** The arm, its public cache and consumed generation, and whether there is an
    [m_mpc].  [m_received_feedback] belongs to the owner of the endpoint. *)
Record ArmMPC := {
  ma_arm : ArmImpl;
  ma_public_cache : MPCMeasurement;
  ma_consumed_generation : Z;
  ma_mpc : bool
}.

Definition marm (A : Type) : Type := ArmMPC -> prog marm_call (ArmMPC * (solver_error + A)).
#[export] Instance marm_ret : MRet marm := fun A a s => mret (s, inr a).
#[export] Instance marm_bind : MBind marm := fun A B f p s =>
  out ← p s; match snd out with inl e => mret (fst out, inl e) | inr a => f a (fst out) end.
Definition mthrow {A} (e : exception) : marm A := fun s => mret (s, inl (Raised e)).
Definition mask {R} (c : marm_call R) : marm R := fun s => r ← call c; mret (s, inr r).
Definition mgets {A} (f : ArmMPC -> A) : marm A := fun s => mret (s, inr (f s)).
Definition mmodify (f : ArmMPC -> ArmMPC) : marm unit := fun s => mret (f s, inr tt).
Definition mrethrow {A} (e : solver_error) : marm A := fun s => mret (s, inl e).
Definition mcatch {A} (p : marm A) (handler : solver_error -> marm A) : marm A := fun s =>
  out ← p s; match snd out with inl e => handler e (fst out) | inr a => mret (fst out, inr a) end.

Definition with_arm (a : ArmImpl) (s : ArmMPC) : ArmMPC := {|
  ma_arm := a; ma_public_cache := ma_public_cache s;
  ma_consumed_generation := ma_consumed_generation s; ma_mpc := ma_mpc s |}.
Definition with_cache (m : MPCMeasurement) (s : ArmMPC) : ArmMPC := {|
  ma_arm := ma_arm s; ma_public_cache := m;
  ma_consumed_generation := ma_consumed_generation s; ma_mpc := ma_mpc s |}.
Definition with_consumed (g : Z) (s : ArmMPC) : ArmMPC := {|
  ma_arm := ma_arm s; ma_public_cache := ma_public_cache s;
  ma_consumed_generation := g; ma_mpc := ma_mpc s |}.
Definition with_mpc (s : ArmMPC) : ArmMPC := {|
  ma_arm := ma_arm s; ma_public_cache := ma_public_cache s;
  ma_consumed_generation := ma_consumed_generation s; ma_mpc := true |}.

(** Members that both builds have. *)
Definition on_arm {A} (p : arm A) : marm A := fun s =>
  out ← lift (@ArmCall) (p (ma_arm s));
  mret (with_arm (fst out) s, match snd out with inl e => inl (Raised e) | inr a => inr a end).

(** ** Feedback *)

(** [s_onArmStatus], lines 208-222: the last measurement after a status; the
    time of the clock is used when the sample is a new one. *)
Definition feedback_update (s : FciArmStatusSnapshot) (now : Z) (f : MPCMeasurement) : MPCMeasurement := {|
  m_state := snap_state s;
  m_received :=
    if (m_meas_generation f =? 0) ||
       (negb (as_seq (snap_state s) =? as_seq (m_state f)) &&
        negb (as_source_timestamp_us (snap_state s) =? as_source_timestamp_us (m_state f)))
    then now else m_received f;
  m_connected := m_connected f;
  m_meas_generation := snap_generation s |}.

Definition mpc_onArmStatus (s : FciArmStatusSnapshot) (f : MPCMeasurement) : prog marm_call MPCMeasurement :=
  now ← (if (m_meas_generation f =? 0) ||
            (negb (as_seq (snap_state s) =? as_seq (m_state f)) &&
             negb (as_source_timestamp_us (snap_state s) =? as_source_timestamp_us (m_state f)))
         then call (ArmCall ClockNs) else mret 0);
  let f := feedback_update s now f in
  plan ← call (MailboxPublish Planner f);
  output ← call (MailboxPublish Output f);
  public ← call (MailboxPublish Public f);
  _ ← (if bool_decide (plan = WL_OK) && bool_decide (output = WL_OK) && bool_decide (public = WL_OK)
       then mret tt else call StoreFeedbackFailed);
  mret f.

(** [s_latestMeasurement], [s_latestState] and [s_takeLatestState]. *)
Definition s_latestMeasurement : marm MPCMeasurement :=
  t ← mask (MailboxRead Public);
  cache ← mgets ma_public_cache;
  _ ← mmodify (with_cache (default cache (snd t)));
  if unreadable (fst t) then mthrow (ControlException "Cannot read arm feedback mailbox")
  else mgets ma_public_cache.
Definition mpc_latestState : marm ArmState := m ← s_latestMeasurement; mret (m_state m).

Definition mpc_takeLatestState : marm (option ArmState) :=
  t ← mask (MailboxRead Public);
  cache ← mgets ma_public_cache;
  _ ← mmodify (with_cache (default cache (snd t)));
  if unreadable (fst t) then mret None
  else
    latest ← mgets ma_public_cache;
    consumed ← mgets ma_consumed_generation;
    if (m_meas_generation latest =? 0) || (m_meas_generation latest =? consumed) then mret None
    else
      _ ← mmodify (with_consumed (m_meas_generation latest));
      mret (Some (m_state latest)).

(** ** Stopping and preparing *)

(** [s_stopControlLocked] in this build. *)
Definition mpc_stopControlLocked : marm unit :=
  _ ← on_arm s_stopControlLocked;
  session ← mgets ma_mpc;
  if session : bool then mask StopMPC else mret tt.

(** A session for poses drives the joints: its capability and mode are those of
    [JointPVT]. *)
Definition mpc_prepareControlLocked (t : CommandType) : marm Z :=
  let t := if decide (t = TCartesianPose) then TJointPVT else t in
  info ← mgets (fun s => m_device_info (ma_arm s));
  if negb (supports (s_armCapabilityFor t) info)
  then mthrow (CommandException "firmware does not advertise this arm command capability")
  else
    _ ← mpc_stopControlLocked;
    _ ← on_arm s_requestPcMode;
    _ ← on_arm (s_ensureMode (s_controlModeFor t));
    _ ← mask (ArmCall (StoreStop false));
    _ ← mask (ArmCall (StoreRunning true));
    mask (ArmCall CurrentGeneration).

(** ** The callbacks of a session *)

(** [s_reader]: the cache that a worker's reader starts with. *)
Definition s_reader (w : consumer) (seed : MPCMeasurement) : marm MPCMeasurement :=
  t ← mask (MailboxRead w);
  match fst t, snd t with
  | WL_OK, Some pending =>
      mret (if m_meas_generation seed <? m_meas_generation pending then pending else seed)
  | WL_OK, None | WL_ERR_NO_DATA, _ => mret seed
  | WL_ERROR, _ => mthrow (ControlException "Cannot initialize MPC feedback consumer")
  end.

(** The reader itself: the measurement, and its cache after it. *)
Definition with_connected (b : bool) (m : MPCMeasurement) : MPCMeasurement := {|
  m_state := m_state m; m_received := m_received m; m_connected := b;
  m_meas_generation := m_meas_generation m |}.
Definition read_feedback (w : consumer) (cache : MPCMeasurement) : marm MPCMeasurement :=
  t ← mask (MailboxRead w);
  let cache := default cache (snd t) in
  if unreadable (fst t) then mthrow (ControlException "Cannot read MPC feedback mailbox")
  else
    failed ← mask LoadFeedbackFailed;
    if failed : bool then mthrow (ControlException "Cannot read MPC feedback mailbox")
    else
      state ← on_arm connectionState;
      mret (with_connected (bool_decide (state = ArmConnection.kReady)) cache).

(** The sender of joint commands. *)
Definition send_joints (c : JointPVT) : marm unit :=
  now ← mask (ArmCall NowUs);
  st ← mask (ArmCall (EpSend (CmdJointPvt c) now));
  on_arm (s_requireCommand st "MPC JointPvtCommand").

(** The solve of a plan: [previous] is [s_previous], 0 at first; the status and
    the plan, and [s_previous] after it. *)
Definition solve_plan (previous : Z) (state : ArmState) (target : CartesianPose) (p : MPCPlan)
    : solver (Z * MPCPlan * Z) :=
  let gap := m_origin p - previous in
  _ ← (if negb (previous =? 0) && ((gap <? ms 10) || (ms 30 <? gap)) then resetWarmStart else mret tt);
  '(_, knots) ← predict (as_q state) (as_dq state) (pose_T target) (m_knots p);
  status ← lastStatus;
  mret (status, {| m_knots := knots; m_origin := m_origin p; m_generation := m_generation p |}, m_origin p).

(** ** Starting a session *)

(** What the callbacks of a session start with. *)
Record session_start := {
  ss_solver : CartesianMPCSolver;
  ss_planner : MPCMeasurement;
  ss_output : MPCMeasurement;
  ss_generation : Z
}.

Definition on_solver {A} (p : prog ocp_call (solver_error + A)) : marm A := fun s =>
  out ← lift (@OcpCall) p; mret (s, out).

(** The part of [s_startMPC] that uses the solver [limited]. *)
Definition start_session (c : MPCControlConfig) (limited : CartesianMPCSolver) : marm session_start :=
  generation ← mpc_prepareControlLocked TCartesianPose;
  seed ← s_latestMeasurement;
  planner ← s_reader Planner seed;
  output ← s_reader Output seed;
  started ← mask (NewSession c);
  if negb started
  then mthrow (ControlException "MPC requires lock-free control atomics on this platform")
  else
    _ ← mmodify with_mpc;
    mret {| ss_solver := limited; ss_planner := planner; ss_output := output; ss_generation := generation |}.

(** An exception after the solver was made destroys it. *)
Definition free_solver {A} (p : marm A) : marm A :=
  mcatch p (fun e => _ ← on_solver (_ ← destroy; mret (inr tt)); mrethrow e).

Definition s_startMPC (c : MPCControlConfig) : marm session_start :=
  if negb (validateConfig c) then mthrow (CommandException "Invalid MPC control limits or deadlines")
  else
    made ← on_solver (new_solver {| cfg_current_limit_norm := float (current_limit_norm c);
                                    cfg_velocity_excitation := float (velocity_excitation c) |});
    free_solver (
      limited ← on_solver (out ← setVelocityLimit (float (max_joint_velocity c)) made;
                           mret match snd out with inl e => inl e | inr _ => inr (fst out) end);
      start_session c limited).

(** ** The control loop over poses *)

Definition mpc_cleanup (generation : Z) : marm unit :=
  _ ← on_arm (loop_cleanup generation);
  mask SessionStop.

Definition mpcStopReasonMessage (r : reason) : string :=
  match r with
  | None => "none"
  | Some kStopped => "stopped by caller"
  | Some kMotionFinished => "motion finished"
  | Some kStaleState => "joint feedback timed out"
  | Some kStaleTarget => "Cartesian target timed out"
  | Some kStalePlan => "no fresh valid MPC plan"
  | Some kOutputDeadline => "output scheduling deadline missed"
  | Some kInvalidState => "invalid joint feedback or device fault"
  | Some kInvalidTrajectory => "interpolated trajectory exceeds limits"
  | Some kTrackingError => "joint tracking error exceeds limit"
  | Some kTransport => "transport disconnected or command rejected"
  | Some kInternalError => "MPC mailbox invariant failed"
  end.

(** The watch on the session, of a round without feedback; [true]: the loop is
    left. *)
Definition watch_session : marm bool :=
  st ← mask SessionStatus;
  match st_state st with
  | kFault => mthrow (ControlException (mpcStopReasonMessage (st_stop_reason st)))
  | kStoppedState => mret true
  | _ => mret false
  end.

Fixpoint pose_rounds (fuel : nat) (generation : Z) : marm (option unit) :=
  match fuel with
  | O => mret None
  | S fuel' =>
      go ← on_arm (live_session generation);
      if negb go then mret (Some tt)
      else
        acquired ← mask (ArmCall TryAcquire);
        if negb acquired then
          over ← watch_session;
          if over : bool then mret (Some tt) else pose_rounds fuel' generation
        else
          _ ← mask (ArmCall ClearWake);
          go ← on_arm (live_session generation);
          if negb go then mret (Some tt)
          else
            state ← mpc_takeLatestState;
            match state with
            | None => pose_rounds fuel' generation
            | Some state =>
                answer ← mask (ArmCall (Callback state));
                match answer with
                | Some (UCartesianPose target, finished) =>  (* the callback's type *)
                    go ← on_arm (live_session generation);
                    if negb go then mret (Some tt)
                    else
                      thrown ← mask (SessionWrite target finished);
                      match thrown with
                      | Some e => mthrow e
                      | None => if finished : bool then mret (Some tt) else pose_rounds fuel' generation
                      end
                | _ => mthrow CallbackException
                end
            end
  end.

Definition pose_loop (fuel : nat) : marm (option unit) :=
  start ← s_startMPC config0;
  r ← mcatch (pose_rounds fuel (ss_generation start))
        (fun e => _ ← mpc_cleanup (ss_generation start); mrethrow e);
  match r with
  | None => mret None
  | Some _ => _ ← mpc_cleanup (ss_generation start); mret (Some tt)
  end.

(** ** The arm with the position controller: theorems

    What a plan of the solver is when its status says success, that repeated
    samples of the device stop a session, that a session is started only for a
    prepared arm, and that the loop over poses stops every session it started. *)

(** *** Plans *)

(** A plan with the status of success is safe to follow.  When the solve
    callback of a session returns 0, every knot of the plan is within the limits
    of the joints, and it starts at the measurement it was made for; the guess was
    dropped first when the last plan was not one planning interval ago. *)
Theorem solver_plans_inside previous state target p sv l sv' status p' previous' :
  length (m_knots p) = 6%nat -> Forall shaped (m_knots p) ->
  runs (solve_plan previous state target p sv) l (sv', inr (status, p', previous')) ->
  m_origin p' = m_origin p /\ previous' = m_origin p /\
  (status = 0 -> length (m_knots p') = 6%nat /\
    forall stage i, (stage < 6)%nat -> (i < 6)%nat ->
      position_inside (at_joint (js_q (nth stage (m_knots p') state0)) i) i /\
      speed_inside d1e5 (at_joint (js_dq (nth stage (m_knots p') state0)) i) i) /\
  (previous <> 0 -> m_origin p - previous < ms 10 \/ ms 30 < m_origin p - previous ->
    exists l', l = Event ResetQpMemory tt :: l').
Proof.
  intros Hlen Hsh Hr. unfold solve_plan in Hr.
  apply solver_runs_bind in Hr as (l1 & l2 & s1 & r1 & -> & H1 & Hr).
  assert (r1 = inr tt /\ (previous <> 0 -> m_origin p - previous < ms 10 \/ ms 30 < m_origin p - previous ->
    exists l', l1 = Event ResetQpMemory tt :: l')) as [-> Hreset].
  { destruct (Z.eqb_spec previous 0) as [->|Hne]; cbn [negb andb] in H1.
    - destruct H1 as [-> [= <- <-]]. by split.
    - destruct (Z.ltb_spec (m_origin p - previous) (ms 10)), (Z.ltb_spec (ms 30) (m_origin p - previous)); cbn [orb] in H1;
        (destruct H1 as [-> [= <- <-]]; split; [done|]; lia) ||
        (unfold resetWarmStart in H1; apply solver_runs_bind in H1 as (l3 & l4 & s3 & r3 & -> & [-> [= <- <-]] & Hq);
         unfold ocp in Hq; step_call Hq u; destruct u; destruct Hq as [-> [= <- <-]]; split; [done|]; intros _ _; by eexists). }
  apply solver_runs_bind in Hr as (l3 & l4 & s3 & r3 & -> & H3 & Hr).
  destruct r3 as [e|[ok knots]]; [by destruct Hr as [-> [=]]|].
  apply solver_runs_bind in Hr as (l5 & l6 & s5 & r5 & -> & [-> [= <- <-]] & Hr).
  apply runs_ret in Hr as [-> [= <- <- <- <-]].
  split; [done|]. split; [done|]. split.
  - intros H0. pose proof (predict_guarded_runs _ _ _ _ _ _ _ _ _ Hlen Hsh H3) as Hg.
    destruct ok; [|done]. destruct Hg as (_ & H6 & Hk). split; [done|]. intros stage i Hst Hi.
    destruct (Hk stage i Hst Hi) as (Hp & Hv & _). by split.
  - intros Hne Hgap. destruct (Hreset Hne Hgap) as [l' ->]. by eexists.
Qed.

(** *** Repeated samples *)

(** The feedback after a list of statuses, each with the clock at its arrival. *)
Definition feedback_after (l : list (FciArmStatusSnapshot * Z)) (f : MPCMeasurement) : MPCMeasurement :=
  fold_left (fun f '(s, now) => feedback_update s now f) l f.

Lemma repeated_keeps key l : key = as_seq \/ key = as_source_timestamp_us -> forall f,
  m_meas_generation f <> 0 ->
  Forall (fun '(s, _) => snap_generation s <> 0 /\ key (snap_state s) = key (m_state f)) l ->
  m_received (feedback_after l f) = m_received f.
Proof.
  intros Hkey. induction l as [|[s now] l IH]; intros f Hg Hl; [done|].
  apply Forall_cons_1 in Hl as [[Hs Heq] Hl].
  change (feedback_after ((s, now) :: l) f) with (feedback_after l (feedback_update s now f)).
  rewrite IH; [|done|cbn; by rewrite Heq]. cbn. destruct (Z.eqb_spec (m_meas_generation f) 0); [done|].
  destruct Hkey as [-> | ->]; rewrite Heq, Z.eqb_refl; [done|]. by rewrite andb_false_r.
Qed.

(** A device that repeats its sample does not keep a session alive.  While the
    statuses that arrive carry the sequence number, or the time stamp, of the
    sample before, the feedback keeps the time at which that sample arrived,
    however many there are; once that time is older than the timeout of the state,
    every measurement made from the feedback is a fault. *)
Theorem repeated_samples_fault c key l f :
  key = as_seq \/ key = as_source_timestamp_us -> m_meas_generation f <> 0 ->
  Forall (fun '(s, _) => snap_generation s <> 0 /\ key (snap_state s) = key (m_state f)) l ->
  m_received (feedback_after l f) = m_received f /\
  forall connected now, m_received f + state_timeout c < now ->
    measurement_fault c (with_connected connected (feedback_after l f)) now =
      Some (if connected : bool then kStaleState else kTransport).
Proof.
  intros Hkey Hg Hl. pose proof (repeated_keeps key l Hkey f Hg Hl) as Hsame. split; [done|].
  intros connected now Hlate. unfold measurement_fault. cbn [with_connected m_connected m_received m_state].
  destruct connected; cbn [negb]; [|done]. rewrite Hsame.
  replace (state_timeout c <? now - m_received f) with true by (symmetry; apply Z.ltb_lt; lia).
  by rewrite !orb_true_r.
Qed.

(** *** Starting *)

Lemma marm_bind_safe {A B} h (p : marm A) (f : A -> marm B) s mid post :
  safe any h (p s) mid ->
  (forall h' s' e, mid h' (s', inl e) -> post h' (s', inl e)) ->
  (forall h' s' a, mid h' (s', inr a) -> safe any h' (f a s') post) ->
  safe any h ((p ≫= f) s) post.
Proof.
  intros Hp He Hf.
  change ((p ≫= f) s) with
    (p s ≫= fun out => match snd out with inl e => mret (fst out, inl e) | inr a => f a (fst out) end).
  eapply safe_bind; [exact Hp|]. intros h' [s' [e|a]] Hm; cbn; [by apply He|by apply Hf].
Qed.

Lemma mask_safe {R A} h (c : marm_call R) (f : R -> marm A) s post :
  (forall r, safe any (h ++ [Event c r]) (f r s) post) -> safe any h ((mask c ≫= f) s) post.
Proof. intros Hf r. split; [done|]. apply Hf. Qed.
Lemma mgets_safe {R A} h (g : ArmMPC -> R) (f : R -> marm A) s post :
  safe any h (f (g s) s) post -> safe any h ((mgets g ≫= f) s) post.
Proof. done. Qed.
Lemma mmodify_safe {A} h g (f : unit -> marm A) s post :
  safe any h (f tt (g s)) post -> safe any h ((mmodify g ≫= f) s) post.
Proof. done. Qed.

(** Calls on the arm's own objects, not on a session. *)
Definition arm_only (ev : event marm_call) : Prop :=
  match ev with
  | @Event _ R c a => match c with ArmCall _ | OcpCall _ => True | _ => False end
  end.

Lemma lift_arm_only {A} (p : prog arm_call A) : only arm_only (lift (@ArmCall) p).
Proof. induction p as [a|R c k IH]; [done|]. intros r. by split; [|apply IH]. Qed.
Lemma lift_ocp_only {A} (p : prog ocp_call A) : only arm_only (lift (@OcpCall) p).
Proof. induction p as [a|R c k IH]; [done|]. intros r. by split; [|apply IH]. Qed.

Lemma on_arm_safe {A} h (p : arm A) s :
  safe any h (on_arm p s) (fun h' '(s', r) =>
    (exists l, h' = h ++ l /\ Forall arm_only l) /\
    ma_public_cache s' = ma_public_cache s /\ ma_mpc s' = ma_mpc s /\ ma_consumed_generation s' = ma_consumed_generation s).
Proof.
  unfold on_arm. eapply safe_bind.
  - eapply (safe_only arm_only _ _ (fun h' _ => exists l, h' = h ++ l /\ Forall arm_only l));
      [apply lift_arm_only|done|by intros l a Hl; exists l].
  - intros h' [a [e|x]] Hl; apply safe_ret; by repeat split.
Qed.
Lemma on_solver_safe {A} h (p : prog ocp_call (solver_error + A)) s :
  safe any h (on_solver p s) (fun h' '(s', r) => (exists l, h' = h ++ l /\ Forall arm_only l) /\ s' = s).
Proof.
  unfold on_solver. eapply safe_bind.
  - eapply (safe_only arm_only _ _ (fun h' _ => exists l, h' = h ++ l /\ Forall arm_only l));
      [apply lift_ocp_only|done|by intros l a Hl; exists l].
  - intros h' a Hl. by apply safe_ret.
Qed.

Lemma marm_runs_bind {A B} (p : marm A) (f : A -> marm B) s l s' r :
  runs ((p ≫= f) s) l (s', r) -> exists l1 l2 s1 r1, l = l1 ++ l2 /\ runs (p s) l1 (s1, r1) /\
    match r1 with inl e => l2 = [] /\ s' = s1 /\ r = inl e | inr a => runs (f a s1) l2 (s', r) end.
Proof.
  change ((p ≫= f) s) with
    (p s ≫= fun out => match snd out with inl e => mret (fst out, inl e) | inr a => f a (fst out) end).
  intros (l1 & l2 & [s1 [e|a]] & -> & H1 & H2)%runs_bind; exists l1, l2, s1; [exists (inl e)|exists (inr a)].
  - by apply runs_ret in H2 as [-> [= <- <-]].
  - done.
Qed.

Lemma mask_runs {R A} (c : marm_call R) (f : R -> marm A) s l s' r :
  runs ((mask c ≫= f) s) l (s', r) -> exists a l', l = Event c a :: l' /\ runs (f a s) l' (s', r).
Proof. destruct l as [|ev l]; [done|]. intros (a & -> & Hr). by exists a, l. Qed.

(** What may happen before a session is made. *)
Definition before_start (ev : event marm_call) : Prop :=
  match ev with
  | @Event _ R c a => match c with ArmCall _ | OcpCall _ | StopMPC => True | _ => False end
  end.
(** A session has been made. *)
Definition starts (ev : event marm_call) : bool :=
  match ev with
  | @Event _ R c a => match c in marm_call R return R -> bool with NewSession _ => fun ok => ok | _ => fun _ => false end a
  end.
Definition stops (ev : event marm_call) : bool :=
  match ev with @Event _ R c a => match c with SessionStop => true | _ => false end end.
Definition quiet_event (ev : event marm_call) : Prop := starts ev = false /\ stops ev = false.

Lemma before_quiet l : Forall before_start l -> Forall quiet_event l.
Proof. apply List.Forall_impl. intros [R c a]. unfold quiet_event. by destruct c. Qed.

Lemma on_arm_runs {A} (p : arm A) s l s' r :
  runs (on_arm p s) l (s', r) ->
  exists l' a r', l = map (lift_event (@ArmCall)) l' /\ runs (p (ma_arm s)) l' (a, r') /\ s' = with_arm a s /\
    r = match r' with inl e => inl (Raised e) | inr x => inr x end.
Proof.
  unfold on_arm. intros (l1 & l2 & [a r'] & -> & H1 & [-> [= <- <-]])%runs_bind.
  apply lift_runs in H1 as (l' & -> & H1). exists l', a, r'. by rewrite app_nil_r.
Qed.

Lemma lifted_before (l : list (event arm_call)) : Forall before_start (map (lift_event (@ArmCall)) l).
Proof. apply List.Forall_map, List.Forall_forall. by intros [R c a]. Qed.

(** The arm is prepared: nothing has begun to move it before it was stopped and
    its modes were confirmed. *)
Lemma prepare_runs s l s' r :
  runs (mpc_prepareControlLocked TCartesianPose s) l (s', r) ->
  ma_public_cache s' = ma_public_cache s /\
  match r with
  | inl _ => Forall before_start l
  | inr g => supports (s_armCapabilityFor TJointPVT) (m_device_info (ma_arm s)) = true /\
      exists l0, Forall before_start l0 /\
        l = l0 ++ [Event (ArmCall (StoreStop false)) tt; Event (ArmCall (StoreRunning true)) tt;
                   Event (ArmCall CurrentGeneration) g]
  end.
Proof.
  unfold mpc_prepareControlLocked. rewrite decide_True by done.
  intros (l1 & l2 & s1 & r1 & -> & [-> [= <- <-]] & Hr)%marm_runs_bind. cbn [app].
  destruct (supports _ _) eqn:Hsup; cbn [negb] in Hr; [|by destruct Hr as [-> [= <- <-]]].
  apply marm_runs_bind in Hr as (l1 & l3 & s1 & r1 & -> & H1 & Hr).
  assert (Forall before_start l1 /\ ma_public_cache s1 = ma_public_cache s) as [Hb1 Hc1].
  { unfold mpc_stopControlLocked in H1.
    apply marm_runs_bind in H1 as (l4 & l5 & s4 & r4 & -> & (l' & a & r' & -> & _ & -> & ->)%on_arm_runs & H1).
    destruct r'; [destruct H1 as (-> & -> & _); rewrite app_nil_r; split; [apply lifted_before|done]|].
    apply marm_runs_bind in H1 as (l6 & l7 & s6 & r6 & -> & [-> [= <- <-]] & H1).
    destruct (ma_mpc _).
    - destruct l7 as [|ev l7]; [done|]. destruct H1 as ([] & -> & [-> [= <- <-]]).
      split; [|done]. apply Forall_app. split; [apply lifted_before|]. by repeat constructor.
    - destruct H1 as [-> [= <- <-]]. rewrite app_nil_r. split; [apply lifted_before|done]. }
  destruct r1 as [e|[]]; [destruct Hr as (-> & -> & ->); by rewrite app_nil_r|].
  apply marm_runs_bind in Hr as (l4 & l5 & s4 & r4 & -> & (l' & a & r' & -> & _ & -> & ->)%on_arm_runs & Hr).
  destruct r'; [destruct Hr as (-> & -> & ->); rewrite app_nil_r; split; [done|apply Forall_app; split; [done|apply lifted_before]]|].
  apply marm_runs_bind in Hr as (l4 & l6 & s4 & r4 & -> & (l'' & a' & r' & -> & _ & -> & ->)%on_arm_runs & Hr).
  destruct r'; [destruct Hr as (-> & -> & ->); rewrite app_nil_r; split; [done|];
    repeat (apply Forall_app; split); [done|apply lifted_before..]|].
  apply mask_runs in Hr as ([] & l7 & -> & Hr). apply mask_runs in Hr as ([] & l8 & -> & Hr).
  destruct l8 as [|ev l8]; [done|]. destruct Hr as (g & -> & [-> [= <- <-]]). split; [done|]. split; [done|].
  exists (l1 ++ map (lift_event (@ArmCall)) l' ++ map (lift_event (@ArmCall)) l''). split.
  - repeat (apply Forall_app; split); [done|apply lifted_before..].
  - by rewrite <- !app_assoc.
Qed.

Lemma reader_runs w seed s l s' r :
  runs (s_reader w seed s) l (s', r) -> s' = s /\ exists t, l = [Event (MailboxRead w) t] /\
    match r with inr m => m_meas_generation seed <= m_meas_generation m | inl _ => True end.
Proof.
  unfold s_reader. intros ([st v] & l' & -> & Hr)%mask_runs. cbn in Hr.
  destruct st, v; destruct Hr as [-> [= <- <-]]; (split; [done|]); eexists; (split; [done|]); cbn; try lia.
  destruct (Z.ltb_spec (m_meas_generation seed) (m_meas_generation m)); lia.
Qed.

(** What a start does once it has its solver. *)
Lemma start_session_runs c limited s l s' r :
  runs (start_session c limited s) l (s', r) ->
  match r with
  | inr start =>
      supports (s_armCapabilityFor TJointPVT) (m_device_info (ma_arm s)) = true /\
      exists l0 public planner output,
        Forall before_start l0 /\
        l = l0 ++ [Event (ArmCall (StoreStop false)) tt; Event (ArmCall (StoreRunning true)) tt;
                   Event (ArmCall CurrentGeneration) (ss_generation start);
                   Event (MailboxRead Public) public; Event (MailboxRead Planner) planner;
                   Event (MailboxRead Output) output; Event (NewSession c) true] /\
        let seed := default (ma_public_cache s) (snd public) in
        m_meas_generation seed <= m_meas_generation (ss_planner start) /\
        m_meas_generation seed <= m_meas_generation (ss_output start)
  | inl _ => Forall quiet_event l
  end.
Proof.
  intros (l5 & l6 & s1 & r1 & -> & [Hcache H5]%prepare_runs & Hr)%marm_runs_bind.
  destruct r1 as [e|g]; [destruct Hr as (-> & -> & ->); rewrite app_nil_r; by apply before_quiet|].
  destruct H5 as (Hsup & l0 & H0 & ->).
  assert (forall t e, Forall quiet_event (t : list (event marm_call)) -> e = l0 ++
    [Event (ArmCall (StoreStop false)) tt; Event (ArmCall (StoreRunning true)) tt; Event (ArmCall CurrentGeneration) g] ++ t ->
    Forall quiet_event e) as Hquiet.
  { intros t e Ht ->. apply before_quiet in H0.
    repeat (apply Forall_app; split); try done. by repeat constructor. }
  apply marm_runs_bind in Hr as (l7 & l8 & s2 & r2 & -> & H7 & Hr).
  unfold s_latestMeasurement in H7. apply mask_runs in H7 as (public & l9 & -> & H7).
  apply marm_runs_bind in H7 as (l10 & l11 & s3 & r3 & -> & [-> [= <- <-]] & H7).
  apply marm_runs_bind in H7 as (l12 & l13 & s4 & r4 & -> & [-> [= <- <-]] & H7).
  destruct (unreadable (fst public)).
  { destruct H7 as [-> [= <- <-]]. destruct Hr as (-> & -> & ->). eapply Hquiet; [|by rewrite <- !app_assoc]. by repeat constructor. }
  destruct H7 as [-> [= <- <-]].
  apply marm_runs_bind in Hr as (l14 & l15 & s5 & r5 & -> & (-> & planner & -> & Hp)%reader_runs & Hr).
  destruct r5; [destruct Hr as (-> & -> & ->); eapply Hquiet; [|by rewrite <- !app_assoc]; by repeat constructor|].
  apply marm_runs_bind in Hr as (l16 & l17 & s6 & r6 & -> & (-> & output & -> & Ho)%reader_runs & Hr).
  destruct r6; [destruct Hr as (-> & -> & ->); eapply Hquiet; [|by rewrite <- !app_assoc]; by repeat constructor|].
  apply mask_runs in Hr as (started & l18 & -> & Hr). destruct started; cbn [negb] in Hr.
  2: { destruct Hr as [-> [= <- <-]]. eapply Hquiet; [|by rewrite <- !app_assoc]. by repeat constructor. }
  apply marm_runs_bind in Hr as (l19 & l20 & s7 & r7 & -> & [-> [= <- <-]] & [-> [= <- <-]]).
  split; [done|]. exists l0, public, planner, output. split; [done|].
  rewrite Hcache in Hp, Ho. split; [by rewrite <- !app_assoc|by split].
Qed.

Lemma on_solver_runs {A} (p : prog ocp_call (solver_error + A)) s l s' r :
  runs (on_solver p s) l (s', r) -> s' = s /\ Forall before_start l.
Proof.
  intros (l1 & l2 & out & -> & H1 & [-> [= <- _]])%runs_bind. rewrite app_nil_r. split; [done|].
  apply lift_runs in H1 as (l' & -> & _). apply List.Forall_map, List.Forall_forall. by intros [R k a].
Qed.

(** Freeing the solver adds only the solver's calls, on an exception. *)
Lemma free_solver_runs {A} (p : marm A) s l s' r :
  runs (free_solver p s) l (s', r) ->
  (exists a, r = inr a /\ runs (p s) l (s', r)) \/
  (exists e e' l1 l2 s1, r = inl e' /\ l = l1 ++ l2 /\ runs (p s) l1 (s1, inl e) /\ Forall before_start l2).
Proof.
  intros (l1 & l2 & [s1 [e|a]] & -> & H1 & Hr)%runs_bind; [right|left]; cbn [fst snd] in Hr.
  - apply marm_runs_bind in Hr as (l3 & l4 & s3 & r3 & -> & [-> H3]%on_solver_runs & Hr).
    exists e. destruct r3 as [e'|u]; [destruct Hr as (-> & -> & ->); exists e'|destruct Hr as [-> [= <- <-]]; exists e];
      exists l1, (l3 ++ []), s1; by rewrite app_nil_r.
  - destruct Hr as [-> [= <- <-]]. exists a. by rewrite app_nil_r.
Qed.

(** What a start of a session does. *)
Lemma mpc_start_runs c s l s' r :
  runs (s_startMPC c s) l (s', r) ->
  match r with
  | inr start =>
      validateConfig c = true /\
      supports (s_armCapabilityFor TJointPVT) (m_device_info (ma_arm s)) = true /\
      exists l0 public planner output,
        Forall before_start l0 /\
        l = l0 ++ [Event (ArmCall (StoreStop false)) tt; Event (ArmCall (StoreRunning true)) tt;
                   Event (ArmCall CurrentGeneration) (ss_generation start);
                   Event (MailboxRead Public) public; Event (MailboxRead Planner) planner;
                   Event (MailboxRead Output) output; Event (NewSession c) true] /\
        let seed := default (ma_public_cache s) (snd public) in
        m_meas_generation seed <= m_meas_generation (ss_planner start) /\
        m_meas_generation seed <= m_meas_generation (ss_output start)
  | inl _ => Forall quiet_event l
  end.
Proof.
  unfold s_startMPC. destruct (validateConfig c) eqn:Hv; cbn [negb]; [|by intros [-> [= <- <-]]].
  intros (l1 & l2 & s1 & r1 & -> & [-> H1]%on_solver_runs & Hr)%marm_runs_bind.
  destruct r1; [destruct Hr as (-> & -> & ->); rewrite app_nil_r; by apply before_quiet|].
  apply free_solver_runs in Hr as [(start & -> & Hr)|(e & e' & l3 & l4 & s3 & -> & -> & Hr & H4)];
    apply marm_runs_bind in Hr as (l5 & l6 & s1 & r1 & -> & [-> H5]%on_solver_runs & Hr); destruct r1;
    try (destruct Hr as (-> & ? & ?)).
  - done.
  - apply start_session_runs in Hr as (Hsup & l0 & public & planner & output & H0 & -> & Hgen).
    split; [done|]. split; [done|]. exists (l1 ++ l5 ++ l0), public, planner, output.
    split; [by repeat (apply Forall_app; split)|]. split; [by rewrite <- !app_assoc|done].
  - rewrite app_nil_r. apply before_quiet. by repeat (apply Forall_app; split).
  - apply start_session_runs in Hr. apply before_quiet in H1, H4, H5. by repeat (apply Forall_app; split).
Qed.

(** A session is started only for a prepared arm.  When [s_startMPC] returns,
    its configuration was valid, the firmware can follow joint commands, and the
    session was made at the very end: after the arm was stopped (with the session
    before), its modes were set and it was marked as running, and after both of the
    session's readers were given a first measurement no older than the last public
    one.  When it throws, no session has been made. *)
Theorem mpc_starts_prepared c s l s' r :
  runs (s_startMPC c s) l (s', r) ->
  match r with
  | inr start =>
      validateConfig c = true /\
      supports (s_armCapabilityFor TJointPVT) (m_device_info (ma_arm s)) = true /\
      exists l0 public planner output,
        Forall before_start l0 /\
        l = l0 ++ [Event (ArmCall (StoreStop false)) tt; Event (ArmCall (StoreRunning true)) tt;
                   Event (ArmCall CurrentGeneration) (ss_generation start);
                   Event (MailboxRead Public) public; Event (MailboxRead Planner) planner;
                   Event (MailboxRead Output) output; Event (NewSession c) true] /\
        let seed := default (ma_public_cache s) (snd public) in
        m_meas_generation seed <= m_meas_generation (ss_planner start) /\
        m_meas_generation seed <= m_meas_generation (ss_output start)
  | inl _ => Forall quiet_event l
  end.
Proof. exact (mpc_start_runs c s l s' r). Qed.

(** *** The loop over poses *)

Definition quiet {A} (p : marm A) : Prop := forall s, only quiet_event (p s).

Lemma arm_quiet_bind {A B} (p : marm A) (f : A -> marm B) : quiet p -> (forall a, quiet (f a)) -> quiet (p ≫= f).
Proof.
  intros Hp Hf s.
  change ((p ≫= f) s) with
    (p s ≫= fun out => match snd out with inl e => mret (fst out, inl e) | inr a => f a (fst out) end).
  apply only_bind; [apply Hp|]. intros [s' [e|a]]; [done|apply Hf].
Qed.
Lemma quiet_mask {R} (c : marm_call R) : (forall r, quiet_event (Event c r)) -> quiet (mask c).
Proof. intros Hc s r. by split. Qed.
Lemma quiet_arm {A} (p : arm A) : quiet (on_arm p).
Proof.
  intros s. unfold on_arm. apply only_bind; [|by intros [a [e|x]]].
  generalize (p (ma_arm s)). intros q. induction q as [a|R c k IH]; [done|]. intros r. by split; [|apply IH].
Qed.
Lemma quiet_ret {A} (a : A) : quiet (mret a).
Proof. done. Qed.
Lemma quiet_throw {A} e : quiet (mthrow (A:=A) e).
Proof. done. Qed.
Lemma quiet_gets {A} (f : ArmMPC -> A) : quiet (mgets f).
Proof. done. Qed.
Lemma quiet_modify f : quiet (mmodify f).
Proof. done. Qed.

#[local] Hint Resolve quiet_arm quiet_ret quiet_throw quiet_gets quiet_modify : core.
Ltac solve_quiet :=
  repeat first
    [ solve [auto]
    | apply quiet_mask; by intros ?
    | apply arm_quiet_bind; [|intros ?]
    | match goal with
      | |- quiet (if ?b then _ else _) => destruct b
      | |- quiet (match ?x with _ => _ end) => destruct x
      end ].

Lemma rounds_quiet fuel generation : quiet (pose_rounds fuel generation).
Proof.
  induction fuel as [|fuel IH]; [done|]. cbn [pose_rounds]. unfold watch_session, mpc_takeLatestState.
  solve_quiet.
Qed.

Lemma quiet_runs {A} (p : marm A) s l out : quiet p -> runs (p s) l out -> Forall quiet_event l.
Proof. intros Hp Hr. by eapply only_runs; [apply Hp|]. Qed.

Lemma quiet_counts l : Forall quiet_event l -> count_calls starts l = 0%nat /\ count_calls stops l = 0%nat.
Proof. intros Hl. split; apply count_calls_none; eapply List.Forall_impl; [|exact Hl| |exact Hl]; by intros ev []. Qed.

Lemma cleanup_runs g s l s' r :
  runs (mpc_cleanup g s) l (s', r) -> r = inr tt /\ exists l0, l = l0 ++ [Event SessionStop tt] /\ Forall quiet_event l0.
Proof.
  unfold mpc_cleanup. intros (l1 & l2 & s1 & r1 & -> & H1 & Hr)%marm_runs_bind.
  pose proof (quiet_runs _ _ _ _ (quiet_arm _) H1) as Hq.
  apply on_arm_runs in H1 as (l' & a & r' & -> & Hloop & -> & ->).
  assert (exists x, r' = inr x) as [x ->].
  { unfold loop_cleanup in Hloop. destruct l' as [|ev l']; [done|]. destruct Hloop as (current & -> & Hloop).
    cbn in Hloop. destruct (g =? current).
    - destruct l' as [|ev l']; [done|]. destruct Hloop as ([] & -> & [_ [= _ <-]]). by eexists.
    - destruct Hloop as [_ [= _ <-]]. by eexists. }
  destruct l2 as [|ev l2]; [done|]. destruct Hr as ([] & -> & [-> [= <- <-]]). split; [done|].
  by exists (map (lift_event (@ArmCall)) l').
Qed.

(** C24: the loop over poses stops the session it started.  However the loop is left
    (by the user's callback, by a stop, by a fault of the session or of a read,
    or by an exception), the session that it started, if it started one, is
    stopped once, and that is the last thing that happens. *)
Theorem pose_session_stopped fuel s l s' r :
  runs (pose_loop fuel s) l (s', r) -> r <> inr None ->
  count_calls stops l = count_calls starts l /\ (count_calls starts l <= 1)%nat /\
  (count_calls starts l = 1%nat -> exists l', l = l' ++ [Event SessionStop tt]).
Proof.
  unfold pose_loop. intros (l1 & l2 & s1 & r1 & -> & H1 & Hr)%marm_runs_bind Hdone.
  apply mpc_start_runs in H1. destruct r1 as [e|start].
  { destruct Hr as (-> & _ & _). rewrite app_nil_r. apply quiet_counts in H1 as [-> ->]. split; [done|]. by split; [lia|]. }
  destruct H1 as (_ & _ & l0 & t1 & t2 & t3 & Hb & -> & _). apply before_quiet, quiet_counts in Hb as [Hb1 Hb2].
  assert (forall l0', Forall quiet_event l0' -> forall l2, l2 = l0' ++ [Event SessionStop tt] ->
    let l := (l0 ++ [Event (ArmCall (StoreStop false)) tt; Event (ArmCall (StoreRunning true)) tt;
      Event (ArmCall CurrentGeneration) (ss_generation start); Event (MailboxRead Public) t1;
      Event (MailboxRead Planner) t2; Event (MailboxRead Output) t3; Event (NewSession config0) true]) ++ l2 in
    count_calls stops l = count_calls starts l /\ (count_calls starts l <= 1)%nat /\
    (count_calls starts l = 1%nat -> exists l', l = l' ++ [Event SessionStop tt])) as Hstopped.
  { intros l0' [H1 H2]%quiet_counts l2' -> l. unfold l. rewrite !count_calls_app, Hb1, Hb2, H1, H2. cbn.
    split; [done|]. split; [done|]. intros _. eexists. by rewrite app_assoc. }
  apply marm_runs_bind in Hr as (l3 & l4 & s3 & r3 & -> & H3 & Hr).
  unfold mcatch in H3. apply runs_bind in H3 as (l5 & l6 & [s5 [e|x]] & -> & H5 & H6).
  - pose proof (quiet_runs _ _ _ _ (rounds_quiet _ _) H5) as Hq. cbn [fst snd] in H6.
    apply marm_runs_bind in H6 as (l7 & l8 & s7 & r7 & -> & (-> & lc & -> & Hc)%cleanup_runs & [-> [= <- <-]]).
    destruct Hr as (-> & _ & _). apply (Hstopped (l5 ++ lc)); [by apply Forall_app|].
    by rewrite !app_nil_r, app_assoc.
  - pose proof (quiet_runs _ _ _ _ (rounds_quiet _ _) H5) as Hq. destruct H6 as [-> [= <- <-]].
    destruct x as [[]|]; [|by destruct Hr as [-> [= <- <-]]].
    apply marm_runs_bind in Hr as (l7 & l8 & s7 & r7 & -> & (-> & lc & -> & Hc)%cleanup_runs & [-> [= <- <-]]).
    apply (Hstopped (l5 ++ lc)); [by apply Forall_app|]. by rewrite !app_nil_r, app_assoc.
Qed.

(** *** Sample runs *)

Definition sample_arm_state : ArmState := {|
  as_time := 0; as_seq := 7; as_mode := 1; as_source_timestamp_us := 5000; as_errors := 0;
  as_q := sample_q; as_dq := sample_dq; as_tau := sample_dq; as_base_gravity := [0; 0; 0];
  as_O_T_EE := sample_T; as_F_ext := sample_dq; as_gripper_q := 0; as_gripper_dq := 0; as_gripper_tau := 0 |}.
Definition sample_measurement : MPCMeasurement := {|
  m_state := sample_arm_state; m_received := 1000000; m_connected := true; m_meas_generation := 3 |}.

(** An arm whose endpoint accepts everything, with one measurement in every
    mailbox. *)
Definition marm_answer (R : Type) (c : marm_call R) : motors -> R * motors :=
  match c in marm_call R return motors -> R * motors with
  | ArmCall c => motor_answer _ c
  | OcpCall c => fun m => (fst (memory_answer 0 sample_state _ c tt), m)
  | MailboxRead _ => fun m => ((WL_OK, Some sample_measurement), m)
  | MailboxPublish _ _ => fun m => (WL_OK, m)
  | LoadFeedbackFailed => fun m => (false, m)
  | NewSession _ => fun m => (true, m)
  | SessionWrite _ _ => fun m => (None, m)
  | SessionStatus => fun m => (status0, m)
  | StoreFeedbackFailed | StopMPC | SessionStop => fun m => (tt, m)
  end.

(** An arm that can follow joint commands. *)
Definition sample_marm : ArmMPC := {|
  ma_arm := arm_with_info {|
    fi_protocol_version := fi_protocol_version info0; fi_firmware_version := fi_firmware_version info0;
    fi_board_name := []; fi_custom_name := []; fi_serial_number := [];
    fi_firmware_type := fi_firmware_type info0; fi_command_capabilities := 8 |} arm0;
  ma_public_cache := sample_measurement; ma_consumed_generation := 0; ma_mpc := true |}.

Definition marm_run {A} (p : marm A) : list (event marm_call) * (ArmMPC * (solver_error + A)) :=
  interp marm_answer (p sample_marm) {| mo_registers := ∅; mo_asked := (0, 0) |}.
Lemma marm_runs {A} (p : marm A) r :
  snd (snd (marm_run p)) = r -> exists l s', runs (p sample_marm) l (s', r).
Proof.
  intros <-. unfold marm_run.
  exists (fst (interp marm_answer (p sample_marm) {| mo_registers := ∅; mo_asked := (0, 0) |})).
  exists (fst (snd (interp marm_answer (p sample_marm) {| mo_registers := ∅; mo_asked := (0, 0) |}))).
  rewrite <- surjective_pairing. apply interp_runs.
Qed.

Lemma sample_loop_ends : snd (snd (marm_run (pose_loop 3))) = inr (Some tt).
Proof. by vm_compute. Qed.
Lemma pose_session_stopped_witness : exists l s',
  runs (pose_loop 3 sample_marm) l (s', inr (Some tt)) /\ count_calls stops l = count_calls starts l.
Proof.
  destruct (marm_runs _ _ sample_loop_ends) as (l & s' & Hr). exists l, s'. split; [exact Hr|].
  assert (inr (A:=solver_error) (Some tt) <> inr None) as Hne by discriminate.
  exact (proj1 (pose_session_stopped _ _ _ _ _ Hr Hne)).
Defined.

Definition sample_start : session_start := {|
  ss_solver := {| m_cfg := {| cfg_current_limit_norm := float (current_limit_norm config0);
                              cfg_velocity_excitation := float (velocity_excitation config0) |};
                  m_status := -1; warm_started := false; gravity_reference := repeat (of_Z 0) 6 |};
  ss_planner := sample_measurement; ss_output := sample_measurement; ss_generation := 0 |}.
Lemma sample_starts : snd (snd (marm_run (s_startMPC config0))) = inr sample_start.
Proof. by vm_compute. Qed.
Lemma mpc_starts_prepared_witness : exists l s',
  runs (s_startMPC config0 sample_marm) l (s', inr sample_start) /\ validateConfig config0 = true.
Proof.
  destruct (marm_runs _ _ sample_starts) as (l & s' & Hr). exists l, s'. split; [exact Hr|].
  exact (proj1 (mpc_starts_prepared _ _ _ _ _ Hr)).
Defined.

Lemma repeated_samples_fault_witness :
  let s := {| snap_state := sample_arm_state; snap_last_sdk_timestamp_us := 0; snap_generation := 4 |} in
  measurement_fault config0 (with_connected true (feedback_after [(s, 20000000); (s, 60000000)] sample_measurement)) 60000001 =
    Some kStaleState.
Proof.
  intros s. refine (proj2 (repeated_samples_fault config0 as_seq [(s, 20000000); (s, 60000000)] sample_measurement
    (or_introl eq_refl) _ _) true 60000001 _); [discriminate| |reflexivity].
  repeat constructor; discriminate.
Defined.

Definition sample_plan : MPCPlan := {| m_knots := repeat state0 6; m_origin := 21000000; m_generation := 0 |}.
Definition solved_plan : MPCPlan := {| m_knots := sample_prediction; m_origin := 21000000; m_generation := 0 |}.
Definition sample_target : CartesianPose := {| pose_T := sample_T; pose_kp := []; pose_kd := [] |}.
Lemma sample_plan_solved :
  snd (snd (sample_run (solve_plan 1000000 sample_arm_state sample_target sample_plan))) = inr (0, solved_plan, 21000000).
Proof. by vm_compute. Qed.
Lemma solver_plans_inside_witness : exists l s',
  runs (solve_plan 1000000 sample_arm_state sample_target sample_plan sample_solver) l (s', inr (0, solved_plan, 21000000)) /\
  position_inside (at_joint (js_q (nth 5 (m_knots solved_plan) state0)) 1) 1.
Proof.
  destruct (sample_runs _ _ sample_plan_solved) as (l & s' & Hr). exists l, s'. split; [exact Hr|].
  assert (length (m_knots sample_plan) = 6%nat) as Hl by reflexivity.
  assert (Forall shaped (m_knots sample_plan)) as Hsh by (repeat constructor).
  destruct (solver_plans_inside _ _ _ _ _ _ _ _ _ _ Hl Hsh Hr) as (_ & _ & Hk & _).
  apply (proj2 (Hk eq_refl) 5%nat 1%nat); lia.
Defined.
