(* ===== verification/Casadi.v ===== *)
(** * Straight-line functions of the generated kinematics

    The kinematics and dynamics of an arm (src/include/florid/traits/) are C
    functions generated by CasADi: sequences of assignments to scalar variables
    that read elements of the argument arrays and write elements of the result
    arrays.  This file holds their instructions, what an instruction does on
    numbers of any type, what a run is, and the two facts that everything else
    rests on: runs on related numbers are related, and a run that respects its
    declared shapes does not fail. *)

From Stdlib Require Import SpecFloat Reals.
From stdpp Require Import nmap strings.
From S2P Require Import Prelude Arith.

(** ** Instructions *)

(** A register is the number of a local variable: [a07] is 7. *)
Inductive instruction :=
| Arg (d : N) (a i : nat)             (* d=arg[a]? arg[a][i] : 0; *)
| Lit (d : N) (n : Z) (k : nat)       (* d=n e-k; *)
| Add (d x y : N)                     (* d=(x+y); *)
| Sub (d x y : N)
| Mul (d x y : N)
| Div (d x y : N)
| Neg (d x : N)                       (* d=(-x); *)
| Sq (d x : N)                        (* d=casadi_sq(x); *)
| Sin (d x : N)
| Cos (d x : N)
| Sqrt (d x : N)
| Out (o i : nat) (x : N).            (* if (res[o]!=0) res[o][i]=x; *)

(** The numbers: [casadi_real], its operations and literals, and the functions
    of the C library. *)
Class Ops (F : Type) := {
  lit : Z -> nat -> F;
  op_add : F -> F -> F;
  op_sub : F -> F -> F;
  op_mul : F -> F -> F;
  op_div : F -> F -> F;
  op_neg : F -> F;
  op_sin : F -> F;
  op_cos : F -> F;
  op_sqrt : F -> F
}.

Arguments Arg d%_N (a i)%_nat.
Arguments Lit d%_N n%_Z k%_nat.
Arguments Out (o i)%_nat x%_N.

(** ** Runs *)

Section run.
Context {F : Type} {O : Ops F}.

(** [casadi_sq]. *)
Definition casadi_sq (x : F) : F := op_mul x x.

(** The variables that have been assigned, and the result arrays; an array is
    absent when its pointer is null. *)
Record machine := {
  m_regs : Nmap F;
  m_res : list (option (list F))
}.

(** Reading past the arrays, or a variable before it is assigned, is [None]. *)
Definition read_arg (args : list (option (list F))) (a i : nat) : option F :=
  match args !! a with
  | Some (Some l) => l !! i
  | Some None => Some (lit 0 0)
  | None => None
  end.

Definition write_res (res : list (option (list F))) (o i : nat) (v : F) : option (list (option (list F))) :=
  match res !! o with
  | Some (Some l) => if (i <? length l)%nat then Some (<[o := Some (<[i := v]> l)]> res) else None
  | Some None => Some res
  | None => None
  end.

Definition assign (d : N) (v : F) (m : machine) : machine :=
  {| m_regs := <[d := v]> (m_regs m); m_res := m_res m |}.

Definition step (args : list (option (list F))) (m : machine) (ins : instruction) : option machine :=
  let get x := m_regs m !! x in
  match ins with
  | Arg d a i => v ← read_arg args a i; Some (assign d v m)
  | Lit d n k => Some (assign d (lit n k) m)
  | Add d x y => u ← get x; v ← get y; Some (assign d (op_add u v) m)
  | Sub d x y => u ← get x; v ← get y; Some (assign d (op_sub u v) m)
  | Mul d x y => u ← get x; v ← get y; Some (assign d (op_mul u v) m)
  | Div d x y => u ← get x; v ← get y; Some (assign d (op_div u v) m)
  | Neg d x => u ← get x; Some (assign d (op_neg u) m)
  | Sq d x => u ← get x; Some (assign d (casadi_sq u) m)
  | Sin d x => u ← get x; Some (assign d (op_sin u) m)
  | Cos d x => u ← get x; Some (assign d (op_cos u) m)
  | Sqrt d x => u ← get x; Some (assign d (op_sqrt u) m)
  | Out o i x =>
      u ← get x;
      res ← write_res (m_res m) o i u;
      Some {| m_regs := m_regs m; m_res := res |}
  end.

Fixpoint run (args : list (option (list F))) (code : list instruction) (m : machine) : option machine :=
  match code with
  | [] => Some m
  | ins :: code => m ← step args m ins; run args code m
  end.

(** A call: the result arrays after it. *)
Definition call_casadi (code : list instruction) (args res : list (option (list F))) : option (list (option (list F))) :=
  m_res <$> run args code {| m_regs := ∅; m_res := res |}.

Lemma run_app args l1 l2 m : run args (l1 ++ l2) m = m ← run args l1 m; run args l2 m.
Proof.
  revert m. induction l1 as [|ins l1 IH]; intros m; [done|]. cbn.
  destruct (step args m ins); cbn; [apply IH|done].
Qed.
End run.
Arguments machine : clear implicits.

(** A generated function: how many variables it declares, and its code; and what
    it tells about itself, which is the same for a null [mem]: the numbers and
    names of its arguments and results, the shape of each as [{rows, columns, 1}]
    (dense), and the sizes of its work vectors. *)
Record casadi_function := {
  f_locals : N;
  f_code : list instruction
}.
Record casadi_interface := {
  f_name_in : list string;
  f_name_out : list string;
  f_sparsity_in : list (list Z);
  f_sparsity_out : list (list Z);
  f_n_in : nat;
  f_n_out : nat;
  f_work : nat * nat * nat * nat  (* sz_arg, sz_res, sz_iw, sz_w *)
}.

(** The functions of an arm, each with its interface. *)
Record generated := {
  g_fk : casadi_function * casadi_interface;
  g_zero_jacobian : casadi_function * casadi_interface;
  g_body_jacobian : casadi_function * casadi_interface;
  g_mass : casadi_function * casadi_interface;
  g_coriolis : casadi_function * casadi_interface;
  g_gravity : casadi_function * casadi_interface;
  g_pose : list (casadi_function * casadi_interface)
}.
Definition functions_of (g : generated) : list (casadi_function * casadi_interface) :=
  [g_fk g; g_zero_jacobian g; g_body_jacobian g; g_mass g; g_coriolis g; g_gravity g] ++ g_pose g.

(** ** The two kinds of numbers *)

(** A literal of a [float] expression: the decimal rounded to a [double] by the
    compiler, and narrowed by the assignment. *)
Definition decimal_double (n : Z) (k : nat) : double :=
  let m := Z.abs n * 2 ^ 128 in
  let t := 10 ^ Z.of_nat k in
  let q := m / t in
  let q := if m mod t =? 0 then 2 * q else 2 * q + 1 in
  binary_normalize 53 1024 (if n <? 0 then - q else q) (-129) (n <? 0).
Definition float_literal (n : Z) (k : nat) : spec_float := narrow (decimal_double n k).

(** The [float]s and the [double]s of the program; the sine and cosine are the C
    library's. *)
Definition float_ops (sinf cosf : double -> double) : Ops double := {|
  lit n k := widen (float_literal n k);
  op_add x y := widen (SFadd 24 128 (narrow x) (narrow y));
  op_sub x y := widen (SFsub 24 128 (narrow x) (narrow y));
  op_mul x y := widen (SFmul 24 128 (narrow x) (narrow y));
  op_div x y := widen (SFdiv 24 128 (narrow x) (narrow y));
  op_neg := SFopp;
  op_sin := sinf;
  op_cos := cosf;
  op_sqrt x := widen (SFsqrt 24 128 (narrow x))
|}.
Definition double_ops (sin cos : double -> double) : Ops double := {|
  lit := decimal_double;
  op_add := SFadd 53 1024;
  op_sub := SFsub 53 1024;
  op_mul := SFmul 53 1024;
  op_div := SFdiv 53 1024;
  op_neg := SFopp;
  op_sin := sin;
  op_cos := cos;
  op_sqrt := SFsqrt 53 1024
|}.

(** Exact arithmetic on the program's constants, which [literal] rounds. *)
Definition exact_ops (literal : Z -> nat -> spec_float) : Ops R := {|
  lit n k := real_of (literal n k);
  op_add := Rplus;
  op_sub := Rminus;
  op_mul := Rmult;
  op_div := Rdiv;
  op_neg := Ropp;
  op_sin := sin;
  op_cos := cos;
  op_sqrt := R_sqrt.sqrt
|}.
#[export] Instance real_ops : Ops R := exact_ops float_literal.

Example literals_round :
  decimal_double 1 1 = decimal 1 1 /\ decimal_double (-285) 3 = opp (decimal 285 3) /\
  decimal_double 28499999999999998 17 = decimal 285 3 /\ widen (float_literal 3 1) = float_decimal 3 1.
Proof. by vm_compute. Qed.

(** ** Runs on related numbers *)

(** A relation between the numbers of two runs that every operation keeps. *)
Record ops_related {A B} `{OA : Ops A, OB : Ops B} (rel : A -> B -> Prop) : Prop := {
  rel_lit n k : rel (lit n k) (lit n k);
  rel_add a b a' b' : rel a b -> rel a' b' -> rel (op_add a a') (op_add b b');
  rel_sub a b a' b' : rel a b -> rel a' b' -> rel (op_sub a a') (op_sub b b');
  rel_mul a b a' b' : rel a b -> rel a' b' -> rel (op_mul a a') (op_mul b b');
  rel_div a b a' b' : rel a b -> rel a' b' -> rel (op_div a a') (op_div b b');
  rel_neg a b : rel a b -> rel (op_neg a) (op_neg b);
  rel_sin a b : rel a b -> rel (op_sin a) (op_sin b);
  rel_cos a b : rel a b -> rel (op_cos a) (op_cos b);
  rel_sqrt a b : rel a b -> rel (op_sqrt a) (op_sqrt b)
}.
Arguments rel_lit {A B OA OB rel}.
Arguments rel_add {A B OA OB rel}.
Arguments rel_sub {A B OA OB rel}.
Arguments rel_mul {A B OA OB rel}.
Arguments rel_div {A B OA OB rel}.
Arguments rel_neg {A B OA OB rel}.
Arguments rel_sin {A B OA OB rel}.
Arguments rel_cos {A B OA OB rel}.
Arguments rel_sqrt {A B OA OB rel}.

Section related.
Context {A B : Type} `{OA : Ops A, OB : Ops B} (rel : A -> B -> Prop) (Hrel : ops_related rel).

Definition arrays_related : list (option (list A)) -> list (option (list B)) -> Prop :=
  Forall2 (option_Forall2 (Forall2 rel)).

(** Every variable of the one run is one of the other. *)
Definition machines_related (m : machine A) (m' : machine B) : Prop :=
  (forall d v, m_regs m !! d = Some v -> exists v', m_regs m' !! d = Some v' /\ rel v v') /\
  arrays_related (m_res m) (m_res m').

Lemma get_related m m' x v : machines_related m m' -> m_regs m !! x = Some v ->
  exists v', m_regs m' !! x = Some v' /\ rel v v'.
Proof. intros [H _]. apply H. Qed.

Lemma assign_related m m' d v v' : machines_related m m' -> rel v v' ->
  machines_related (assign d v m) (assign d v' m').
Proof.
  intros [H Hres] Hv. split; [|done]. intros d0 v0. cbn. destruct (decide (d = d0)) as [->|Hne].
  - rewrite !lookup_insert_eq. intros [= <-]. by exists v'.
  - rewrite !lookup_insert_ne by done. apply H.
Qed.

Lemma read_arg_related args args' a i v : arrays_related args args' -> read_arg args a i = Some v ->
  exists v', read_arg args' a i = Some v' /\ rel v v'.
Proof.
  intros Hargs. unfold read_arg. destruct (args !! a) as [[l|]|] eqn:Ha; [..|done].
  - destruct (Forall2_lookup_l _ _ _ _ _ Hargs Ha) as (y & -> & Hy). inversion Hy as [? l' Hl|]; subst.
    intros Hi. destruct (Forall2_lookup_l _ _ _ _ _ Hl Hi) as (v' & -> & Hv). by exists v'.
  - destruct (Forall2_lookup_l _ _ _ _ _ Hargs Ha) as (y & -> & Hy). inversion Hy; subst.
    intros [= <-]. exists (lit 0 0). split; [done|]. apply (rel_lit Hrel).
Qed.

Lemma write_res_related res res' o i v v' out : arrays_related res res' -> rel v v' ->
  write_res res o i v = Some out -> exists out', write_res res' o i v' = Some out' /\ arrays_related out out'.
Proof.
  intros Hres Hv. unfold write_res. destruct (res !! o) as [[l|]|] eqn:Ho; [..|done].
  - destruct (Forall2_lookup_l _ _ _ _ _ Hres Ho) as (y & -> & Hy). inversion Hy as [? l' Hl|]; subst.
    rewrite <- (Forall2_length Hl). destruct (i <? length l)%nat; [|done]. intros [= <-].
    eexists. split; [done|]. apply Forall2_insert; [done|]. constructor. by apply Forall2_insert.
  - destruct (Forall2_lookup_l _ _ _ _ _ Hres Ho) as (y & -> & Hy). inversion Hy; subst. intros [= <-]. by eexists.
Qed.

Ltac use_related Hm :=
  repeat match goal with
  | H : (?o ≫= _) = Some _ |- _ => apply bind_Some in H as (? & ? & H)
  | H : m_regs _ !! _ = Some _ |- _ => apply (get_related _ _ _ _ Hm) in H as (? & -> & ?)
  end; cbn.

Lemma step_related args args' m m' ins out :
  arrays_related args args' -> machines_related m m' -> step args m ins = Some out ->
  exists out', step args' m' ins = Some out' /\ machines_related out out'.
Proof.
  intros Hargs Hm Hs. destruct ins; cbn in Hs |- *; use_related Hm.
  1: { destruct (read_arg_related _ _ _ _ _ Hargs H) as (v' & -> & Hv). cbn. simplify_eq.
       eexists. split; [done|]. by apply assign_related. }
  11: { destruct (write_res_related _ _ _ _ _ _ _ (proj2 Hm) ltac:(eassumption) ltac:(eassumption)) as (r' & -> & Hr).
       cbn. simplify_eq. eexists. split; [done|]. split; [apply Hm|done]. }
  all: simplify_eq; eexists; (split; [done|]); apply assign_related; [done|]; unfold casadi_sq;
    destruct Hrel; by eauto.
Qed.

Lemma run_related args args' code : arrays_related args args' -> forall m m' out,
  machines_related m m' -> run args code m = Some out ->
  exists out', run args' code m' = Some out' /\ machines_related out out'.
Proof.
  intros Hargs. induction code as [|ins code IH]; intros m m' out Hm Hr; cbn in *; [simplify_eq; by eexists|].
  apply bind_Some in Hr as (m1 & Hs & Hr).
  destruct (step_related _ _ _ _ _ _ Hargs Hm Hs) as (m1' & -> & Hm'). by apply (IH m1).
Qed.

Lemma call_related code args args' res res' out :
  arrays_related args args' -> arrays_related res res' -> call_casadi code args res = Some out ->
  exists out', call_casadi code args' res' = Some out' /\ arrays_related out out'.
Proof.
  intros Hargs Hres (m & Hr & ->)%fmap_Some.
  assert (machines_related {| m_regs := ∅; m_res := res |} {| m_regs := ∅; m_res := res' |}) as H0.
  { split; [|done]. intros d v. cbn. by rewrite lookup_empty. }
  destruct (run_related args args' code Hargs _ _ _ H0 Hr) as (m' & Hr' & Hm').
  exists (m_res m'). unfold call_casadi. rewrite Hr'. by destruct Hm'.
Qed.
End related.
