(* ===== verification/Polynomials.v ===== *)
(** * Polynomials with dyadic coefficients

    The values of the generated functions are polynomials of the sines and
    cosines of the joint angles, with dyadic coefficients.  They are computed
    with the normal form of the [ring] tactic, reduced by s^2 = 1 - c^2. *)

From Stdlib Require Import SpecFloat Reals Lra.
From Stdlib Require Import setoid_ring.Ring_theory setoid_ring.Ring_polynom.
From S2P Require Import Prelude Arith.

(** ** Dyadic numbers *)

(** [(m, e)] is m/2^e. *)
Definition dyad : Type := Z * N.
Definition pow2 (e : N) : Z := 2 ^ Z.of_N e.
Definition dyad_val (d : dyad) : R := (IZR d.1 / IZR (pow2 d.2))%R.
Definition dyad0 : dyad := (0, 0%N).
Definition dyad1 : dyad := (1, 0%N).
(** Both at the larger exponent. *)
Definition align (x y : dyad) : Z * Z * N :=
  match N.compare x.2 y.2 with
  | Eq => (x.1, y.1, x.2)
  | Lt => (Z.shiftl x.1 (Z.of_N (y.2 - x.2)), y.1, y.2)
  | Gt => (x.1, Z.shiftl y.1 (Z.of_N (x.2 - y.2)), x.2)
  end.
Definition dyad_norm (d : dyad) : dyad := if d.1 =? 0 then dyad0 else d.
Definition dyad_add (x y : dyad) : dyad := let '(a, b, e) := align x y in dyad_norm (a + b, e).
Definition dyad_sub (x y : dyad) : dyad := let '(a, b, e) := align x y in dyad_norm (a - b, e).
Definition dyad_mul (x y : dyad) : dyad := dyad_norm (x.1 * y.1, (x.2 + y.2)%N).
Definition dyad_opp (x : dyad) : dyad := (- x.1, x.2).
Definition dyad_eqb (x y : dyad) : bool := (dyad_sub x y).1 =? 0.

(** A finite floating-point number is one. *)
Definition dyad_of (x : double) : dyad :=
  match x with
  | S754_finite s m e =>
      let m := if s then Z.neg m else Z.pos m in
      if e <=? 0 then (m, Z.to_N (- e)) else (m * 2 ^ e, 0%N)
  | _ => dyad0
  end.

Lemma pow2_pos e : (0 < IZR (pow2 e))%R.
Proof. apply (IZR_lt 0). unfold pow2. apply Z.pow_pos_nonneg; lia. Qed.
Lemma pow2_add a b : IZR (pow2 (a + b)) = (IZR (pow2 a) * IZR (pow2 b))%R.
Proof. unfold pow2. rewrite N2Z.inj_add, Z.pow_add_r by lia. apply mult_IZR. Qed.
Lemma pow2_sub a b : (a <= b)%N -> IZR (pow2 b) = (IZR (pow2 (b - a)) * IZR (pow2 a))%R.
Proof. intros ?. rewrite <- pow2_add. by replace (b - a + a)%N with b by lia. Qed.
Lemma shiftl_pow2 a e : IZR (Z.shiftl a (Z.of_N e)) = (IZR a * IZR (pow2 e))%R.
Proof. rewrite Z.shiftl_mul_pow2 by lia. apply mult_IZR. Qed.

Lemma dyad_norm_val d : dyad_val (dyad_norm d) = dyad_val d.
Proof.
  unfold dyad_norm. destruct (Z.eqb_spec d.1 0) as [Hd|]; [|done].
  unfold dyad_val. rewrite Hd. cbn. unfold Rdiv. by rewrite !Rmult_0_l.
Qed.
Lemma align_val x y a b e : align x y = (a, b, e) ->
  dyad_val x = (IZR a / IZR (pow2 e))%R /\ dyad_val y = (IZR b / IZR (pow2 e))%R.
Proof.
  unfold align, dyad_val. pose proof (pow2_pos x.2). pose proof (pow2_pos y.2).
  destruct (N.compare_spec x.2 y.2) as [He|He|He]; intros [= <- <- <-].
  - by rewrite He.
  - rewrite shiftl_pow2. pose proof (pow2_sub x.2 y.2 ltac:(lia)) as Hs. pose proof (pow2_pos (y.2 - x.2)).
    split; [|done]. rewrite Hs. field. split; lra.
  - rewrite shiftl_pow2. pose proof (pow2_sub y.2 x.2 ltac:(lia)) as Hs. pose proof (pow2_pos (x.2 - y.2)).
    split; [done|]. rewrite Hs. field. split; lra.
Qed.
Lemma dyad_add_val x y : dyad_val (dyad_add x y) = (dyad_val x + dyad_val y)%R.
Proof.
  unfold dyad_add. destruct (align x y) as [[a b] e] eqn:Ha. apply align_val in Ha as [-> ->].
  rewrite dyad_norm_val. unfold dyad_val. cbn. rewrite plus_IZR. pose proof (pow2_pos e). field. lra.
Qed.
Lemma dyad_sub_val x y : dyad_val (dyad_sub x y) = (dyad_val x - dyad_val y)%R.
Proof.
  unfold dyad_sub. destruct (align x y) as [[a b] e] eqn:Ha. apply align_val in Ha as [-> ->].
  rewrite dyad_norm_val. unfold dyad_val. cbn. rewrite minus_IZR. pose proof (pow2_pos e). field. lra.
Qed.
Lemma dyad_mul_val x y : dyad_val (dyad_mul x y) = (dyad_val x * dyad_val y)%R.
Proof.
  unfold dyad_mul. rewrite dyad_norm_val. unfold dyad_val. cbn. rewrite mult_IZR, pow2_add.
  pose proof (pow2_pos x.2). pose proof (pow2_pos y.2). field. split; lra.
Qed.
Lemma dyad_opp_val x : dyad_val (dyad_opp x) = (- dyad_val x)%R.
Proof. unfold dyad_val. cbn. rewrite opp_IZR. pose proof (pow2_pos x.2). field. lra. Qed.
Lemma dyad_0_val : dyad_val dyad0 = 0%R.
Proof. apply Rdiv_0_l. Qed.
Lemma dyad_1_val : dyad_val dyad1 = 1%R.
Proof. apply (Rdiv_1_r 1). Qed.
Lemma dyad_eqb_val x y : dyad_eqb x y = true -> dyad_val x = dyad_val y.
Proof.
  unfold dyad_eqb. intros Hz%Z.eqb_eq. apply Rminus_diag_uniq. rewrite <- dyad_sub_val.
  unfold dyad_val. rewrite Hz. apply Rdiv_0_l.
Qed.

Lemma powerRZ_pow2 k : powerRZ 2 (Z.of_nat k) = IZR (2 ^ Z.of_nat k).
Proof. by rewrite <- pow_powerRZ, pow_IZR. Qed.
Lemma dyad_of_val x : dyad_val (dyad_of x) = real_of x.
Proof.
  destruct x as [s|s| |s m e]; try apply dyad_0_val. cbn [dyad_of real_of].
  set (z := if s then Z.neg m else Z.pos m). unfold dyad_val, pow2. destruct (Z.leb_spec e 0) as [He|He]; cbn [fst snd].
  - replace e with (- Z.of_nat (Z.to_nat (- e)))%Z at 2 by lia.
    rewrite powerRZ_neg', powerRZ_pow2. unfold Rdiv. do 3 f_equal. lia.
  - replace e with (Z.of_nat (Z.to_nat e)) by lia. rewrite mult_IZR, powerRZ_pow2. apply Rdiv_1_r.
Qed.

(** They represent reals. *)
Lemma dyad_morph : ring_morph 0%R 1%R Rplus Rmult Rminus Ropp eq dyad0 dyad1 dyad_add dyad_mul dyad_sub dyad_opp dyad_eqb dyad_val.
Proof.
  split; auto using dyad_0_val, dyad_1_val, dyad_add_val, dyad_sub_val, dyad_mul_val, dyad_opp_val, dyad_eqb_val.
Qed.

(** ** Polynomials *)

Definition poly : Type := Pol dyad.
Definition p_const (d : dyad) : poly := Pc d.
Definition p_zero : poly := p_const dyad0.
Definition p_one : poly := p_const dyad1.
Definition p_var (i : positive) : poly := mk_X dyad0 dyad1 i.
Definition p_add : poly -> poly -> poly := Padd dyad0 dyad_add dyad_eqb.
Definition p_sub : poly -> poly -> poly := Psub dyad0 dyad_add dyad_sub dyad_opp dyad_eqb.
Definition p_mul : poly -> poly -> poly := Pmul dyad0 dyad1 dyad_add dyad_mul dyad_eqb.
Definition p_opp : poly -> poly := Popp dyad_opp.
(** The value of a polynomial where the variables are [l]. *)
Definition p_val (l : list R) (p : poly) : R := Pphi 0%R Rplus Rmult dyad_val l p.

#[global] Arguments p_val : simpl never.
#[global] Arguments p_add : simpl never.
#[global] Arguments p_sub : simpl never.
#[global] Arguments p_mul : simpl never.
#[global] Arguments p_opp : simpl never.
#[global] Arguments p_var : simpl never.

Lemma R_eq_ext : ring_eq_ext Rplus Rmult Ropp eq.
Proof. split; by intros ?? -> ?? -> || by intros ?? ->. Qed.
Lemma R_almost : almost_ring_theory 0%R 1%R Rplus Rmult Rminus Ropp eq.
Proof. apply (Rth_ARth (Eqsth R) R_eq_ext). split; intros; ring. Qed.
Definition R_eq : Equivalence (@eq R) := Eqsth R.

Lemma p_add_val l p q : p_val l (p_add p q) = (p_val l p + p_val l q)%R.
Proof. apply (Padd_ok R_eq R_eq_ext R_almost dyad_morph). Qed.
Lemma p_sub_val l p q : p_val l (p_sub p q) = (p_val l p - p_val l q)%R.
Proof. apply (Psub_ok R_eq R_eq_ext R_almost dyad_morph). Qed.
Lemma p_mul_val l p q : p_val l (p_mul p q) = (p_val l p * p_val l q)%R.
Proof. apply (Pmul_ok R_eq R_eq_ext R_almost dyad_morph). Qed.
Lemma p_opp_val l p : p_val l (p_opp p) = (- p_val l p)%R.
Proof. apply (Popp_ok R_eq R_eq_ext R_almost dyad_morph). Qed.
Lemma p_var_val l i : p_val l (p_var i) = BinList.nth 0%R i l.
Proof. symmetry. apply (mkX_ok R_eq R_eq_ext R_almost dyad_morph). Qed.
Lemma p_const_val l d : p_val l (p_const d) = dyad_val d.
Proof. done. Qed.
Lemma p_zero_val l : p_val l p_zero = 0%R.
Proof. apply dyad_0_val. Qed.
Lemma p_one_val l : p_val l p_one = 1%R.
Proof. apply dyad_1_val. Qed.

(** ** Sines and cosines

    The variables are the cosine and the sine of each angle, then others. *)

Definition vars (q v : list R) : list R := flat_map (fun x => [cos x; sin x]) q ++ v.
Definition p_cos (i : nat) : poly := p_var (Pos.of_succ_nat (2 * i)).
Definition p_sin (i : nat) : poly := p_var (Pos.of_succ_nat (2 * i + 1)).
Definition p_other (n i : nat) : poly := p_var (Pos.of_succ_nat (2 * n + i)).

Lemma jump_drop {A} i : forall l : list A, BinList.jump (Pos.of_succ_nat i) l = drop (S i) l.
Proof.
  induction i as [|i IH]; intros l; [by destruct l|]. cbn [Pos.of_succ_nat].
  rewrite BinList.jump_succ, IH. cbn [BinList.jump].
  revert l. clear. generalize (S i) as n. induction n as [|n IH]; intros [|x l]; [done..|apply IH].
Qed.
Lemma nth_binlist {A} (d : A) l i : BinList.nth d (Pos.of_succ_nat i) l = nth i l d.
Proof.
  rewrite (BinList.nth_jump d _ (d :: l)), jump_drop. cbn [drop].
  revert l. induction i as [|i IH]; intros [|x l]; (done || apply IH).
Qed.

Lemma vars_cos q v i x : q !! i = Some x -> p_val (vars q v) (p_cos i) = cos x.
Proof.
  intros Hq. unfold p_cos, vars. rewrite p_var_val, nth_binlist. revert i Hq. induction q as [|y q IH]; intros [|i] Hq; [done..| |].
  - by injection Hq as ->.
  - replace (2 * S i)%nat with (S (S (2 * i))) by lia. cbn. by apply IH.
Qed.
Lemma vars_sin q v i x : q !! i = Some x -> p_val (vars q v) (p_sin i) = sin x.
Proof.
  intros Hq. unfold p_sin, vars. rewrite p_var_val, nth_binlist. revert i Hq. induction q as [|y q IH]; intros [|i] Hq; [done..| |].
  - by injection Hq as ->.
  - replace (2 * S i + 1)%nat with (S (S (2 * i + 1))) by lia. cbn. by apply IH.
Qed.
Lemma vars_other q v i x : v !! i = Some x -> p_val (vars q v) (p_other (length q) i) = x.
Proof.
  intros Hv. unfold p_other, vars. rewrite p_var_val, nth_binlist.
  induction q as [|y q IH]; [by apply nth_lookup_Some|]. cbn [length flat_map app].
  replace (2 * S (length q) + i)%nat with (S (S (2 * length q + i))) by lia. exact IH.
Qed.

(** The rules s^2 = 1 - c^2 for the first [n] angles, and the check that a
    polynomial is zero. *)
Definition square_of (j : nat) : Mon := zmon (Pos.of_succ_nat (2 * j)) (vmon 2 mon0).
Definition trig_rules (n : nat) : list (dyad * Mon * poly) :=
  map (fun j => (dyad1, square_of j, p_sub p_one (p_mul (p_cos j) (p_cos j)))) (seq 0 n).
Definition p_reduce (n : nat) (p : poly) : poly :=
  PNSubstL dyad0 dyad1 dyad_add dyad_mul dyad_eqb (triv_div dyad0 dyad1 dyad_eqb) p (trig_rules n) 50 50.
Definition p_is_zero (n : nat) (p : poly) : bool := Peq dyad_eqb (p_reduce n p) p_zero.

Lemma trig_rules_hold q v : MPcond 0%R 1%R Rplus Rmult eq dyad_val (trig_rules (length q)) (vars q v).
Proof.
  assert (forall js, Forall (fun j => (j < length q)%nat) js ->
    MPcond 0%R 1%R Rplus Rmult eq dyad_val
      (map (fun j => (dyad1, square_of j, p_sub p_one (p_mul (p_cos j) (p_cos j)))) js) (vars q v)) as Hall.
  { induction 1 as [|j js Hj _ IH]; [done|]. cbn [map MPcond]. split; [|done]. cbn [fst snd].
    destruct (lookup_lt_is_Some_2 q j Hj) as [x Hx].
    pose proof (vars_sin q v j x Hx) as Hs. unfold p_sin in Hs. rewrite p_var_val, nth_binlist in Hs.
    change (Pphi 0%R Rplus Rmult dyad_val) with p_val.
    rewrite p_sub_val, p_mul_val, p_one_val, !(vars_cos q v j x Hx), dyad_1_val.
    assert (List.hd 0%R (BinList.jump (Pos.of_succ_nat (2 * j)) (vars q v)) = sin x) as Hhd.
    { rewrite <- Hs, jump_drop. clear. generalize (vars q v) as l. rewrite Nat.add_1_r. generalize (S (2 * j)) as n.
      induction n as [|n IH]; intros [|y l]; (done || apply IH). }
    cbn [square_of Mphi pow_pos]. rewrite Hhd. pose proof (sin2_cos2 x) as H1. unfold Rsqr in H1. lra. }
  apply Hall, List.Forall_forall. intros j [_ Hj]%in_seq. lia.
Qed.

Lemma p_reduce_val q v p : p_val (vars q v) p = p_val (vars q v) (p_reduce (length q) p).
Proof.
  apply (PNSubstL_ok R_eq R_eq_ext R_almost dyad_morph (triv_div_th R_eq R_eq_ext R_almost dyad_morph)), trig_rules_hold.
Qed.
Lemma p_peq_zero l p : Peq dyad_eqb p p_zero = true -> p_val l p = 0%R.
Proof. intros Hz. apply (Peq_ok R_eq R_eq_ext dyad_morph) in Hz. etransitivity; [exact (Hz l)|apply p_zero_val]. Qed.

Lemma p_is_zero_val q v p : p_is_zero (length q) p = true -> p_val (vars q v) p = 0%R.
Proof. intros Hz. rewrite p_reduce_val. by apply p_peq_zero. Qed.
Lemma p_equal_val q v p1 p2 : p_is_zero (length q) (p_sub p1 p2) = true -> p_val (vars q v) p1 = p_val (vars q v) p2.
Proof. intros Hz%(p_is_zero_val q v). rewrite p_sub_val in Hz. lra. Qed.
Lemma p_equal6 q v p1 p2 : length q = 6%nat -> p_is_zero 6 (p_sub p1 p2) = true -> p_val (vars q v) p1 = p_val (vars q v) p2.
Proof. intros Hq Hz. apply p_equal_val. by rewrite Hq. Qed.

(** The sum of the sizes of the coefficients bounds the values where no variable
    is larger than 1. *)
Definition dyad_abs (d : dyad) : dyad := (Z.abs d.1, d.2).
Fixpoint p_norm (p : poly) : dyad :=
  match p with
  | Pc c => dyad_abs c
  | Pinj _ p => p_norm p
  | PX p _ q => dyad_add (p_norm p) (p_norm q)
  end.
Definition dyad_leb (x y : dyad) : bool := 0 <=? (dyad_sub y x).1.

Lemma dyad_leb_val x y : dyad_leb x y = true -> (dyad_val x <= dyad_val y)%R.
Proof.
  unfold dyad_leb. intros Hl%Z.leb_le. pose proof (pow2_pos (dyad_sub y x).2) as Hp. apply IZR_le in Hl.
  assert (0 <= dyad_val (dyad_sub y x))%R as H0 by (apply Rmult_le_pos; [done|left; by apply Rinv_0_lt_compat]).
  rewrite dyad_sub_val in H0. lra.
Qed.
Lemma dyad_abs_val d : dyad_val (dyad_abs d) = Rabs (dyad_val d).
Proof.
  unfold dyad_val. cbn. pose proof (pow2_pos d.2). rewrite abs_IZR. unfold Rdiv. rewrite Rabs_mult. f_equal.
  symmetry. apply Rabs_right. left. by apply Rinv_0_lt_compat.
Qed.

Definition bounded_by_1 (l : list R) : Prop := Forall (fun x => Rabs x <= 1)%R l.
Lemma bounded_tl l : bounded_by_1 l -> bounded_by_1 (List.tl l).
Proof. intros Hl. destruct Hl; [constructor|done]. Qed.
Lemma bounded_jump j : forall l, bounded_by_1 l -> bounded_by_1 (BinList.jump j l).
Proof. induction j as [j IH|j IH|]; intros l Hl; cbn; eauto using bounded_tl. Qed.
Lemma bounded_hd l : bounded_by_1 l -> (Rabs (List.hd 0%R l) <= 1)%R.
Proof. intros Hl. destruct Hl; [|done]. cbn. rewrite Rabs_R0. lra. Qed.
Lemma bounded_product x y : (Rabs x <= 1)%R -> (Rabs y <= 1)%R -> (Rabs (x * y) <= 1)%R.
Proof. intros Hx Hy. rewrite Rabs_mult. pose proof (Rabs_pos x). pose proof (Rabs_pos y). nra. Qed.
Lemma bounded_power x i : (Rabs x <= 1)%R -> (Rabs (pow_pos Rmult x i) <= 1)%R.
Proof. intros Hx. induction i; cbn; auto using bounded_product. Qed.

Lemma p_norm_bound p : forall l, bounded_by_1 l -> (Rabs (p_val l p) <= dyad_val (p_norm p))%R.
Proof.
  induction p as [c|j p IH|p IHp i q IHq]; intros l Hl; unfold p_val in *; cbn [Pphi p_norm].
  - rewrite dyad_abs_val. lra.
  - apply IH. by apply bounded_jump.
  - rewrite dyad_add_val. etransitivity; [apply Rabs_triang|]. specialize (IHp l Hl). specialize (IHq (List.tl l) (bounded_tl l Hl)).
    apply Rplus_le_compat; [|done]. rewrite Rabs_mult. pose proof (bounded_power _ i (bounded_hd l Hl)).
    pose proof (Rabs_pos (Pphi 0%R Rplus Rmult dyad_val l p)). pose proof (Rabs_pos (pow_pos Rmult (List.hd 0%R l) i)). nra.
Qed.
Lemma vars_bounded q : bounded_by_1 (vars q []).
Proof.
  unfold vars, bounded_by_1. rewrite app_nil_r. induction q as [|x q IH]; [constructor|]. cbn.
  pose proof (COS_bound x). pose proof (SIN_bound x). constructor; [|constructor; [|done]]; apply Rabs_le; lra.
Qed.

(** A polynomial in the first [n] variables. *)
Fixpoint p_below (n : nat) (p : poly) : bool :=
  match p with
  | Pc _ => true
  | Pinj j p => p_below (n - Pos.to_nat j) p
  | PX p _ q => (0 <? n)%nat && p_below n p && p_below (n - 1) q
  end.
Lemma jump_pos {A} j (l : list A) : BinList.jump j l = drop (Pos.to_nat j) l.
Proof.
  destruct (Pos2Nat.is_succ j) as [n Hn]. rewrite <- (SuccNat2Pos.inv n j Hn), jump_drop. by rewrite SuccNat2Pos.id_succ.
Qed.
Lemma p_below_val p : forall n l, p_below n p = true -> p_val l p = p_val (take n l) p.
Proof.
  induction p as [c|j p IH|p IHp i q IHq]; intros n l Hn; unfold p_val in *; cbn [Pphi p_below] in *.
  - done.
  - rewrite !jump_pos, skipn_firstn_comm. by apply IH.
  - rewrite !andb_true_iff, Nat.ltb_lt in Hn. destruct Hn as [[H0 Hp] Hq]. destruct n as [|n]; [lia|].
    rewrite (IHp (S n) l Hp), (IHq _ (List.tl l) Hq). destruct l as [|x l]; cbn [take List.tl List.hd]; [by rewrite take_nil|].
    by rewrite Nat.sub_1_r.
Qed.
Lemma take_vars q v : take (2 * length q) (vars q v) = vars q [].
Proof.
  unfold vars. rewrite app_nil_r. induction q as [|x q IH]; [done|]. cbn [length].
  replace (2 * S (length q))%nat with (S (S (2 * length q))) by lia. cbn. do 2 f_equal. exact IH.
Qed.

Lemma p_below_vars q v p : length q = 6%nat -> p_below 12 p = true -> p_val (vars q v) p = p_val (vars q []) p.
Proof.
  intros Hq Hb. rewrite (p_below_val _ _ _ Hb). change 12%nat with (2 * 6)%nat. by rewrite <- Hq, take_vars.
Qed.

(** Two polynomials of the sines and cosines of six angles differ by at most [eps]. *)
Definition p_close (eps : dyad) (p p' : poly) : bool :=
  let d := p_reduce 6 (p_sub p p') in p_below 12 d && dyad_leb (p_norm d) eps.
Lemma p_close_val eps p p' q v : length q = 6%nat -> p_close eps p p' = true ->
  (Rabs (p_val (vars q v) p - p_val (vars q v) p') <= dyad_val eps)%R.
Proof.
  intros Hq [Hb Hc%dyad_leb_val]%andb_true_iff. rewrite <- p_sub_val, p_reduce_val, Hq, (p_below_vars _ _ _ Hq Hb).
  etransitivity; [apply p_norm_bound, vars_bounded|exact Hc].
Qed.
