(* ===== verification/Symbolic.v ===== *)
(** * Symbolic runs of the generated functions

    A straight-line function run on polynomials of its arguments: what it computes,
    once and for every argument, with the derivatives along one joint. *)

From Stdlib Require Import SpecFloat Reals Lra.
From stdpp Require Import nmap strings.
From S2P Require Import Prelude Arith Casadi Polynomials.

(** ** Polynomials and derivatives *)

(** What is known of a number: nothing; that it is a joint angle; or the
    polynomial that it is, and that of its derivative. *)
Inductive symbolic := Unknown | Angle (i : nat) | Known (p d : poly).

(** The operations, with derivatives along the joint [j]; 6 is none. *)
Definition symbolic_ops (literal : Z -> nat -> spec_float) (j : nat) : Ops symbolic := {|
  lit n k := Known (p_const (dyad_of (literal n k))) p_zero;
  op_add x y := match x, y with Known p d, Known p' d' => Known (p_add p p') (p_add d d') | _, _ => Unknown end;
  op_sub x y := match x, y with Known p d, Known p' d' => Known (p_sub p p') (p_sub d d') | _, _ => Unknown end;
  op_mul x y := match x, y with
    | Known p d, Known p' d' => Known (p_mul p p') (p_add (p_mul d p') (p_mul p d'))
    | _, _ => Unknown end;
  op_div _ _ := Unknown;
  op_neg x := match x with Known p d => Known (p_opp p) (p_opp d) | _ => Unknown end;
  op_sin x := match x with
    | Angle i => Known (p_sin i) (if (i =? j)%nat then p_cos i else p_zero)
    | _ => Unknown end;
  op_cos x := match x with
    | Angle i => Known (p_cos i) (if (i =? j)%nat then p_opp (p_sin i) else p_zero)
    | _ => Unknown end;
  op_sqrt _ := Unknown
|}.

(** Numbers that depend on the angle of the joint. *)
Definition function_ops (literal : Z -> nat -> spec_float) : Ops (R -> R) := {|
  lit n k _ := real_of (literal n k);
  op_add f g t := (f t + g t)%R;
  op_sub f g t := (f t - g t)%R;
  op_mul f g t := (f t * g t)%R;
  op_div f g t := (f t / g t)%R;
  op_neg f t := (- f t)%R;
  op_sin f t := sin (f t);
  op_cos f t := cos (f t);
  op_sqrt f t := R_sqrt.sqrt (f t)
|}.

Lemma function_at literal t : ops_related (OA:=function_ops literal) (OB:=exact_ops literal) (fun (f : R -> R) (x : R) => f t = x).
Proof. split; cbn; congruence. Qed.

Section sound.
Context (literal : Z -> nat -> spec_float) (j : nat) (q : list R) (w : R -> list R).

(** The variables where the joint has the angle [t]; the others may vary too. *)
Definition at_angle (t : R) : list R := vars (<[j := t]> q) (w t).

(** What a symbolic number says of the number that it stands for. *)
Definition stands_for (s : symbolic) (f : R -> R) : Prop :=
  match s with
  | Unknown => True
  | Angle i => forall t, (<[j := t]> q) !! i = Some (f t)
  | Known p d => forall t, f t = p_val (at_angle t) p /\ derivable_pt_lim f t (p_val (at_angle t) d)
  end.

Lemma stands_angle_derives i f : stands_for (Angle i) f ->
  forall t, derivable_pt_lim f t (if (i =? j)%nat then 1 else 0)%R.
Proof.
  intros Hf t. destruct (Nat.eqb_spec i j) as [->|Hne].
  - apply (derivable_pt_lim_ext (fun t => t)); [|apply derivable_pt_lim_id].
    intros z. specialize (Hf z). destruct (decide (j < length q)%nat) as [Hj|Hj].
    + rewrite list_lookup_insert_eq in Hf by done. congruence.
    + rewrite list_insert_ge in Hf by lia. rewrite lookup_ge_None_2 in Hf by lia. done.
  - apply (derivable_pt_lim_ext (fun _ => f t)); [|apply derivable_pt_lim_const].
    intros z. pose proof (Hf z) as Hz. pose proof (Hf t) as Ht.
    rewrite list_lookup_insert_ne in Hz, Ht by done. congruence.
Qed.

Lemma symbolic_sound : ops_related (OA:=symbolic_ops literal j) (OB:=function_ops literal) stands_for.
Proof.
  split; cbn.
  - intros n k t. rewrite p_const_val, p_zero_val. split; [|apply derivable_pt_lim_const].
    by rewrite dyad_of_val.
  - intros [| |p d] f [| |p' d'] g; cbn; try done. intros Hf Hg t. destruct (Hf t) as [Hf1 Hf2], (Hg t) as [Hg1 Hg2].
    rewrite !p_add_val. split; [congruence|by apply (derivable_pt_lim_plus f g)].
  - intros [| |p d] f [| |p' d'] g; cbn; try done. intros Hf Hg t. destruct (Hf t) as [Hf1 Hf2], (Hg t) as [Hg1 Hg2].
    rewrite !p_sub_val. split; [congruence|by apply (derivable_pt_lim_minus f g)].
  - intros [| |p d] f [| |p' d'] g; cbn; try done. intros Hf Hg t. destruct (Hf t) as [Hf1 Hf2], (Hg t) as [Hg1 Hg2].
    rewrite p_add_val, !p_mul_val, <- Hf1, <- Hg1. split; [done|by apply (derivable_pt_lim_mult f g)].
  - done.
  - intros [| |p d] f; cbn; try done. intros Hf t. destruct (Hf t) as [Hf1 Hf2].
    rewrite !p_opp_val. split; [congruence|by apply (derivable_pt_lim_opp f)].
  - intros [|i|p d] f; try done. intros Hf t. pose proof (stands_angle_derives i f Hf t) as Hd. specialize (Hf t).
    unfold at_angle. rewrite (vars_sin _ _ _ _ Hf). split; [done|].
    replace (p_val _ _) with (cos (f t) * (if (i =? j)%nat then 1 else 0))%R.
    + apply (derivable_pt_lim_comp f sin); [done|apply derivable_pt_lim_sin].
    + destruct (i =? j)%nat; [rewrite (vars_cos _ _ _ _ Hf)|rewrite p_zero_val]; ring.
  - intros [|i|p d] f; try done. intros Hf t. pose proof (stands_angle_derives i f Hf t) as Hd. specialize (Hf t).
    unfold at_angle. rewrite (vars_cos _ _ _ _ Hf). split; [done|].
    replace (p_val _ _) with (- sin (f t) * (if (i =? j)%nat then 1 else 0))%R.
    + apply (derivable_pt_lim_comp f cos); [done|apply derivable_pt_lim_cos].
    + destruct (i =? j)%nat; [rewrite p_opp_val, (vars_sin _ _ _ _ Hf)|rewrite p_zero_val]; ring.
  - done.
Qed.
End sound.

(** ** Runs with symbolic arguments *)

Lemma map_related {A B} (g : A -> B) l : Forall2 (fun a b => g a = b) l (map g l).
Proof. induction l; by constructor. Qed.
Lemma map_related_r {A B} (g : A -> B) (rel : A -> B -> Prop) l : (forall a, rel a (g a)) -> Forall2 rel l (map g l).
Proof. intros Hg. induction l; by constructor. Qed.
Lemma map_related_l {A B} (g : A -> B) (rel : B -> A -> Prop) l : (forall a, rel (g a) a) -> Forall2 rel (map g l) l.
Proof. intros Hg. induction l; by constructor. Qed.

(** What is known of every element of an array. *)
Fixpoint known (l : list symbolic) : option (list (poly * poly)) :=
  match l with
  | [] => Some []
  | Known p d :: l => r ← known l; Some ((p, d) :: r)
  | _ => None
  end.
(** The polynomials and derivatives that a call leaves in result arrays of the
    lengths [ms], which it has to fill. *)
Definition symbolic_results (literal : Z -> nat -> spec_float) (j : nat) (f : casadi_function) (args : list (option (list symbolic))) (ms : list nat)
    : option (list (list (poly * poly))) :=
  res ← call_casadi (O:=symbolic_ops literal j) (f_code f) args (map (fun m => Some (replicate m Unknown)) ms);
  mapM (fun a => a ≫= known) res.

(** Checks of what is left. *)
Definition entry (l : list (poly * poly)) (i : nat) : poly * poly := nth i l (p_zero, p_zero).
Definition all_below (n : nat) (p : nat -> bool) : bool := forallb p (seq 0 n).
Lemma all_below_spec n p i : all_below n p = true -> (i < n)%nat -> p i = true.
Proof. unfold all_below. rewrite forallb_forall. intros Hall Hi. apply Hall, in_seq. lia. Qed.

(** The arrays at a value of the parameter. *)
Definition arrays_at (t : R) (fs : list (option (list (R -> R)))) : list (option (list R)) := map (fmap (map (fun f => f t))) fs.

Lemma arrays_at_related t fs : arrays_related (fun (f : R -> R) x => f t = x) fs (arrays_at t fs).
Proof.
  unfold arrays_at. apply map_related_r. intros [fs'|]; cbn; constructor. apply map_related.
Qed.
Lemma related_arrays_at t fs xs : arrays_related (fun (f : R -> R) x => f t = x) fs xs -> xs = arrays_at t fs.
Proof.
  induction 1 as [|a b fs xs Hab _ ->]; [done|]. unfold arrays_at. cbn. f_equal.
  destruct Hab as [l l' Hl|]; [|done]. cbn. f_equal. induction Hl; cbn; congruence.
Qed.

Section results.
Context (literal : Z -> nat -> spec_float) (j : nat) (q : list R) (w : R -> list R).

Lemma known_stands l r (fs : list (R -> R)) : known l = Some r -> Forall2 (stands_for j q w) l fs ->
  Forall2 (fun pd => stands_for j q w (Known pd.1 pd.2)) r fs.
Proof.
  revert r fs. induction l as [|[| |p d] l IH]; intros r fs Hk Hs; try done; cbn in Hk.
  - simplify_eq. inversion Hs. constructor.
  - apply bind_Some in Hk as (r' & Hk & [= <-]). inversion Hs; subst. constructor; [done|]. by apply IH.
Qed.

Lemma symbolic_results_sound f args fargs ms ls outs :
  symbolic_results literal j f args ms = Some ls -> arrays_related (stands_for j q w) args fargs -> map length outs = ms ->
  exists fouts : list (list (R -> R)),
    (forall t, call_casadi (O:=exact_ops literal) (f_code f) (arrays_at t fargs) (map Some outs) = Some (arrays_at t (map Some fouts))) /\
    Forall2 (Forall2 (fun pd => stands_for j q w (Known pd.1 pd.2))) ls fouts.
Proof.
  intros Hs Hargs <-. unfold symbolic_results in Hs. apply bind_Some in Hs as (res & Hc & Hk).
  set (fres := map (fun l => Some (map (fun (x : R) (_ : R) => x) l)) outs).
  assert (arrays_related (stands_for j q w) (map (fun m => Some (replicate m Unknown)) (map length outs)) fres) as Hres.
  { unfold fres. rewrite map_map. clear. induction outs as [|l outs IH]; constructor; [|done]. constructor.
    induction l; by constructor. }
  destruct (call_related _ (symbolic_sound literal j q w) _ _ _ _ _ _ Hargs Hres Hc) as (fout & Hf & Hrel).
  assert (exists fouts, fout = map Some fouts /\ Forall2 (Forall2 (fun pd => stands_for j q w (Known pd.1 pd.2))) ls fouts) as (fouts & -> & Hfs).
  { clear -Hk Hrel. revert ls Hk. induction Hrel as [|a b res fout Hab _ IH]; intros ls Hk; cbn in Hk.
    { injection Hk as <-. by exists []. }
    apply bind_Some in Hk as (l & Hl & Hk). apply bind_Some in Hk as (ls' & Hk & [= <-]).
    destruct (IH ls' Hk) as (fouts & -> & Hfs). destruct Hab as [x y Hxy|]; [|done].
    exists (y :: fouts). split; [done|]. constructor; [|done]. by eapply known_stands. }
  exists fouts. split; [|done]. intros t.
  assert (arrays_related (fun (f : R -> R) x => f t = x) fres (map Some outs)) as Hres'.
  { unfold fres. clear. induction outs as [|l outs IH]; constructor; [|done]. constructor. by apply map_related_l. }
  destruct (call_related _ (function_at literal t) _ _ _ _ _ _ (arrays_at_related t fargs) Hres' Hf) as (rout & -> & Hrel').
  by rewrite (related_arrays_at t _ _ Hrel').
Qed.
(** An element of what is left, and its derivative. *)
Lemma stands_entry l (fs : list (R -> R)) k t : Forall2 (fun pd => stands_for j q w (Known pd.1 pd.2)) l fs ->
  nth k (map (fun g => g t) fs) 0%R = p_val (at_angle j q w t) (entry l k).1 /\
  derivable_pt_lim (fun t => nth k (map (fun g => g t) fs) 0%R) t (p_val (at_angle j q w t) (entry l k).2).
Proof.
  intros Hl. unfold entry. revert k. induction Hl as [|pd g l fs Hg _ IH]; intros [|k]; cbn; try apply Hg; try apply IH;
    rewrite p_zero_val; (split; [done|apply derivable_pt_lim_const]).
Qed.
End results.

(** ** Symbolic calls

    Arguments: the six angles, and [n] other numbers that do not depend on them;
    the result has [m] elements, which the function has to write. *)

Definition symbolic_angles : option (list symbolic) := Some (map Angle (seq 0 6)).
Definition symbolic_others (n : nat) : option (list symbolic) := Some (map (fun i => Known (p_other 6 i) p_zero) (seq 0 n)).

(** The polynomials and derivatives of a call with one result array. *)
Definition symbolic_call (literal : Z -> nat -> spec_float) (j : nat) (f : casadi_function) (args : list (option (list symbolic))) (m : nat)
    : option (list (poly * poly)) :=
  match symbolic_results literal j f args [m] with
  | Some [l] => Some l
  | _ => None
  end.

Section call.
Context (literal : Z -> nat -> spec_float) (j : nat) (q v : list R) (Hq : length q = 6%nat).

(** The angles as functions of the angle of the joint. *)
Definition angle_functions : list (R -> R) := map (fun i t => nth i (<[j := t]> q) 0%R) (seq 0 6).

Lemma angles_stand w : Forall2 (stands_for j q w) (map Angle (seq 0 6)) angle_functions.
Proof.
  unfold angle_functions. apply Forall2_fmap, Forall_Forall2_diag, List.Forall_forall.
  intros i [_ Hi]%in_seq t. destruct (lookup_lt_is_Some_2 (<[j := t]> q) i) as [x Hx]; [rewrite length_insert; lia|].
  rewrite Hx. f_equal. symmetry. by apply nth_lookup_Some.
Qed.

Lemma angles_at t : map (fun f => f t) angle_functions = <[j := t]> q.
Proof.
  unfold angle_functions. rewrite map_map. apply list_eq. intros i. rewrite list_lookup_fmap.
  destruct (decide (i < 6)%nat) as [Hi|Hi].
  - rewrite lookup_seq_lt by done. cbn.
    destruct (lookup_lt_is_Some_2 (<[j := t]> q) i) as [x Hx]; [rewrite length_insert; lia|].
    rewrite Hx. f_equal. by apply nth_lookup_Some.
  - rewrite lookup_seq_ge by lia. symmetry. apply lookup_ge_None_2. rewrite length_insert, Hq. lia.
Qed.

(** A call with the angles [q] and other arguments, one of whose angles varies. *)
Lemma symbolic_call_sound f extra fextra m l out :
  symbolic_call literal j f (symbolic_angles :: map Some extra) m = Some l ->
  Forall2 (Forall2 (stands_for j q (fun _ => v))) extra fextra -> length out = m ->
  exists outs : list (R -> R),
    (forall t, call_casadi (O:=exact_ops literal) (f_code f) (Some (<[j := t]> q) :: map (fun fs => Some (map (fun g => g t) fs)) fextra) [Some out]
               = Some [Some (map (fun g => g t) outs)]) /\
    Forall2 (fun pd => stands_for j q (fun _ => v) (Known pd.1 pd.2)) l outs.
Proof.
  intros Hs Hextra Hout. unfold symbolic_call in Hs.
  destruct (symbolic_results literal j f _ _) as [[|l' []]|] eqn:Hc; try done. injection Hs as ->.
  assert (arrays_related (stands_for j q (fun _ => v)) (symbolic_angles :: map Some extra) (Some angle_functions :: map Some fextra)) as Hargs.
  { apply Forall2_cons_2; [exact (Some_Forall2 _ _ _ (angles_stand _))|]. apply Forall2_fmap.
    eapply Forall2_impl; [|exact Hextra]. by constructor. }
  destruct (symbolic_results_sound _ _ _ _ _ _ _ _ _ [out] Hc Hargs) as (fouts & Hcall & Hrel); [cbn; congruence|].
  inversion Hrel as [|? outs ? ? Houts Hnil]; subst. inversion Hnil; subst. exists outs. split; [|done].
  intros t. rewrite <- (angles_at t). etransitivity; [|exact (Hcall t)]. f_equal.
  unfold arrays_at. rewrite map_cons, map_map. done.
Qed.
End call.

(** Other arguments that do not depend on the angle. *)
Definition symbolic_constants (ps : list (list poly)) : list (list symbolic) := map (map (fun p => Known p p_zero)) ps.
Definition constant_in (j : nat) (q v : list R) (p : poly) : Prop :=
  forall t, p_val (at_angle j q (fun _ => v) t) p = p_val (vars q v) p.

Lemma constants_stand j q v ps : Forall (Forall (constant_in j q v)) ps ->
  Forall2 (Forall2 (stands_for j q (fun _ => v))) (symbolic_constants ps)
    (map (map (fun p (_ : R) => p_val (vars q v) p)) ps).
Proof.
  intros Hc. induction Hc as [|l ps Hl _ IH]; [constructor|]. constructor; [|done].
  clear IH. induction Hl as [|p l Hp _ IH]; cbn; constructor; [|done].
  intros t. split; [by rewrite Hp|]. rewrite p_zero_val. apply derivable_pt_lim_const.
Qed.

(** The values that a call leaves, and their derivatives along the joint. *)
Lemma call_derivatives literal j f ps m l q v out x :
  symbolic_call literal j f (symbolic_angles :: map Some (symbolic_constants ps)) m = Some l ->
  length q = 6%nat -> length out = m -> Forall (Forall (constant_in j q v)) ps -> <[j := x]> q = q ->
  exists outs : list (R -> R),
    (forall t, call_casadi (O:=exact_ops literal) (f_code f) (Some (<[j := t]> q) :: map (fun p => Some (map (p_val (vars q v)) p)) ps) [Some out]
               = Some [Some (map (fun g => g t) outs)]) /\
    Forall2 (fun pd g => g x = p_val (vars q v) pd.1 /\ derivable_pt_lim g x (p_val (vars q v) pd.2)) l outs.
Proof.
  intros Hs Hq Hout Hc Hx.
  destruct (symbolic_call_sound literal j q v Hq f _ _ m l out Hs (constants_stand j q v ps Hc) Hout) as (outs & Hcall & Hrel).
  exists outs. split.
  - intros t. rewrite <- Hcall. do 2 f_equal. rewrite map_map. apply map_ext. intros p. by rewrite map_map.
  - eapply Forall2_impl; [|exact Hrel]. intros [p d] g Hg. cbn in Hg |- *. specialize (Hg x). unfold at_angle in Hg. by rewrite Hx in Hg.
Qed.

Lemma call_values literal f ps m l q v out :
  symbolic_call literal 6 f (symbolic_angles :: map Some (symbolic_constants ps)) m = Some l ->
  length q = 6%nat -> length out = m ->
  call_casadi (O:=exact_ops literal) (f_code f) (Some q :: map (fun p => Some (map (p_val (vars q v)) p)) ps) [Some out]
  = Some [Some (map (fun pd => p_val (vars q v) pd.1) l)].
Proof.
  intros Hs Hq Hout. assert (forall t : R, <[6%nat := t]> q = q) as Hx by (intros t; apply list_insert_ge; lia).
  destruct (call_derivatives literal 6 f ps m l q v out 0%R Hs Hq Hout) as (outs & Hcall & Hrel); [|done|].
  { apply List.Forall_forall. intros ps' _. apply List.Forall_forall. intros p _ t. unfold at_angle. by rewrite Hx. }
  specialize (Hcall 0%R). rewrite Hx in Hcall. rewrite Hcall. do 3 f_equal. clear -Hrel.
  induction Hrel as [|pd g l outs [Hg _] _ IH]; [done|]. cbn. by f_equal.
Qed.
