(* ===== verification/Analyses.v ===== *)
(** * Analyses of the generated functions

    Facts about straight-line functions that hold in every arithmetic, decided by
    running them on abstract numbers: that they stay inside their declared arrays
    and fill their results, which results are the same value, and of which degree
    the results are in the elements of an argument. *)

From Stdlib Require Import Reals Lra SpecFloat.
From stdpp Require Import nmap strings.
From S2P Require Import Prelude Arith Casadi Symbolic.

(** ** Shapes *)

(** How many elements an array has: those of a dense one, or the last offset. *)
Definition elements (shape : list Z) : nat :=
  match shape with
  | [rows; columns; 1] => Z.to_nat (rows * columns)
  | _ :: columns :: offsets => Z.to_nat (nth (Z.to_nat columns) offsets 0)
  | _ => O
  end.

(** An array of the declared shape, or a null pointer. *)
Definition fits {F} (shape : list Z) (a : option (list F)) : Prop :=
  match a with Some l => length l = elements shape | None => True end.

(** Runs on flags: whether a number does not depend on what the result arrays
    held before the call. *)
Definition flag_ops : Ops bool := {|
  lit _ _ := true; op_add := andb; op_sub := andb; op_mul := andb; op_div := andb;
  op_neg b := b; op_sin b := b; op_cos b := b; op_sqrt b := b |}.

(** Two runs at once. *)
Definition pair_ops {F} (O : Ops F) : Ops (F * F) := {|
  lit n k := (lit n k, lit n k);
  op_add a b := (op_add a.1 b.1, op_add a.2 b.2);
  op_sub a b := (op_sub a.1 b.1, op_sub a.2 b.2);
  op_mul a b := (op_mul a.1 b.1, op_mul a.2 b.2);
  op_div a b := (op_div a.1 b.1, op_div a.2 b.2);
  op_neg a := (op_neg a.1, op_neg a.2);
  op_sin a := (op_sin a.1, op_sin a.2);
  op_cos a := (op_cos a.1, op_cos a.2);
  op_sqrt a := (op_sqrt a.1, op_sqrt a.2)
|}.

Definition flags (b : bool) (shapes : list (list Z)) (present : list bool) : list (option (list bool)) :=
  zip_with (fun (shape : list Z) (p : bool) => if p then Some (replicate (elements shape) b) else None) shapes present.
Definition all_set (a : option (list bool)) : bool := match a with Some l => forallb (fun b => b) l | None => true end.

(** The run with every array present stays inside the arrays and writes every
    element; the runs with null pointers then do so as well. *)
Definition all_present (shapes : list (list Z)) : list bool := map (fun _ => true) shapes.
Definition well_shaped (f : casadi_function * casadi_interface) : bool :=
  let '(f, i) := f in
  (length (f_sparsity_in i) =? f_n_in i)%nat && (length (f_name_in i) =? f_n_in i)%nat &&
  (length (f_sparsity_out i) =? f_n_out i)%nat && (length (f_name_out i) =? f_n_out i)%nat &&
  match call_casadi (O:=flag_ops) (f_code f) (flags true (f_sparsity_in i) (all_present (f_sparsity_in i)))
      (flags false (f_sparsity_out i) (all_present (f_sparsity_out i))) with
  | Some res => forallb all_set res
  | None => false
  end.

(** ** Null pointers *)

(** The same arrays, of which some are null pointers. *)
Definition nulled (a a' : option (list bool)) : Prop := a' = a \/ a' = None.

Lemma read_arg_nulled args args' a i v : Forall2 nulled args args' -> forallb all_set args = true ->
  read_arg (O:=flag_ops) args a i = Some v -> read_arg (O:=flag_ops) args' a i = Some v.
Proof.
  intros Hn Hset. unfold read_arg. destruct (args !! a) as [x|] eqn:Ha; [|done].
  destruct (Forall2_lookup_l _ _ _ _ _ Hn Ha) as (x' & -> & [-> | ->]); [done|].
  destruct x as [l|]; [|done]. intros Hi. rewrite forallb_forall in Hset.
  pose proof (Hset _ (proj1 (list_elem_of_In _ _) (list_elem_of_lookup_2 _ _ _ Ha))) as Hl. cbn in Hl. rewrite forallb_forall in Hl.
  cbn. f_equal. symmetry. apply Hl, list_elem_of_In. by eapply list_elem_of_lookup_2.
Qed.

Lemma write_res_nulled res res' o i v out : Forall2 nulled res res' -> write_res res o i v = Some out ->
  exists out', write_res res' o i v = Some out' /\ Forall2 nulled out out'.
Proof.
  intros Hn. unfold write_res. destruct (res !! o) as [x|] eqn:Ho; [|done].
  destruct (Forall2_lookup_l _ _ _ _ _ Hn Ho) as (x' & Ho' & [-> | ->]); rewrite Ho'.
  - destruct x as [l|]; [destruct (i <? length l)%nat; [|done]|]; intros [= <-]; eexists; (split; [done|]); [|done].
    apply Forall2_insert; [done|by left].
  - intros Hw. exists res'. split; [done|].
    assert (exists y, out = <[o := y]> res) as [y ->].
    { destruct x as [l|]; [destruct (i <? length l)%nat; [|done]|]; injection Hw as <-; [by eexists|].
      exists None. by rewrite list_insert_id. }
    rewrite <- (list_insert_id res' o None Ho'). apply Forall2_insert; [done|by right].
Qed.

Lemma run_nulled args args' code : Forall2 nulled args args' -> forallb all_set args = true -> forall m m' out,
  m_regs m' = m_regs m -> Forall2 nulled (m_res m) (m_res m') -> run (O:=flag_ops) args code m = Some out ->
  exists out', run (O:=flag_ops) args' code m' = Some out' /\ Forall2 nulled (m_res out) (m_res out').
Proof.
  intros Hn Hset. induction code as [|ins code IH]; intros m m' out Hm Hres Hr; cbn in Hr |- *.
  { simplify_eq. by exists m'. }
  apply bind_Some in Hr as (m1 & Hs & Hr).
  assert (exists m1', step (O:=flag_ops) args' m' ins = Some m1' /\ m_regs m1' = m_regs m1 /\ Forall2 nulled (m_res m1) (m_res m1')) as (m1' & -> & Hm1 & Hres1).
  { destruct ins; cbn in Hs |- *; rewrite ?Hm; repeat (let Hg := fresh "Hg" in apply bind_Some in Hs as (? & Hg & Hs); rewrite ?Hg; cbn);
      try (injection Hs as <-; eexists; split; [done|]; cbn; by rewrite ?Hm).
    - rewrite (read_arg_nulled _ _ _ _ _ Hn Hset Hg). cbn. injection Hs as <-. eexists. split; [done|]. cbn. by rewrite Hm.
    - injection Hs as <-. destruct (write_res_nulled _ _ _ _ _ _ Hres Hg0) as (r' & -> & Hr'). cbn. by eexists. }
  cbn. by apply (IH m1).
Qed.

Lemma flags_nulled b shapes present : length present = length shapes ->
  Forall2 nulled (flags b shapes (all_present shapes)) (flags b shapes present).
Proof.
  revert present. induction shapes as [|s shapes IH]; intros [|p present] Hl; [constructor|done..|].
  unfold flags, all_present. cbn. constructor; [destruct p; [by left|by right]|]. apply IH. by injection Hl.
Qed.
Lemma flags_set shapes : forallb all_set (flags true shapes (all_present shapes)) = true.
Proof.
  induction shapes as [|s shapes IH]; [done|]. unfold flags, all_present in *. cbn. rewrite IH, andb_true_r.
  by induction (elements s).
Qed.
Lemma nulled_set l l' : Forall2 nulled l l' -> forallb all_set l = true -> forallb all_set l' = true.
Proof.
  induction 1 as [|a a' l l' Ha _ IH]; cbn; [done|]. intros [Hs Hl]%andb_true_iff. rewrite (IH Hl), andb_true_r.
  by destruct Ha as [-> | ->].
Qed.

Section shapes.
Context {F : Type} (O : Ops F).

Definition agree (b : bool) (x : F * F) : Prop := b = true -> x.1 = x.2.
Lemma agree_related : ops_related (OA:=flag_ops) (OB:=pair_ops O) agree.
Proof.
  split; unfold agree; cbn; try done.
  1-4: intros a b a' b' H H' [H1%H H2%H']%andb_true_iff; congruence.
  all: intros a b H H1%H; congruence.
Qed.
Lemma first_related : ops_related (OA:=pair_ops O) (OB:=O) (fun x y => x.1 = y).
Proof. split; cbn; congruence. Qed.
Lemma second_related : ops_related (OA:=pair_ops O) (OB:=O) (fun x y => x.2 = y).
Proof. split; cbn; congruence. Qed.

Definition present (a : option (list F)) : bool := match a with Some _ => true | None => false end.

(** The arrays of a call beside the flags, and beside those of another call. *)
Definition pairs (a a' : option (list F)) : option (list (F * F)) :=
  match a, a' with Some l, Some l' => Some (zip l l') | _, _ => None end.

Lemma zip_agree b (l l' : list F) n : length l = n -> length l' = n -> (b = true -> l = l') ->
  Forall2 agree (replicate n b) (zip l l').
Proof.
  revert l l'. induction n as [|n IH]; intros [|x l] [|x' l']; cbn; intros; try done.
  assert (b = true -> x = x' /\ l = l') as Hb by (intros Hb; naive_solver).
  constructor; [intros Ht; by apply Hb|]. apply IH; [lia|lia|]. intros Ht. by apply Hb.
Qed.

Lemma flags_agree b shapes args args' : Forall2 fits shapes args -> Forall2 fits shapes args' ->
  map present args = map present args' -> (b = true -> args = args') ->
  arrays_related agree (flags b shapes (map present args)) (zip_with pairs args args').
Proof.
  intros Hargs. revert args'. induction Hargs as [|shape a shapes args Ha Hargs IH]; intros args' Hargs' Hp Hb.
  - inversion Hargs'. constructor.
  - inversion Hargs' as [|? a' ? args'' Ha' Hargs'']; subst. cbn in Hp. injection Hp as Hp1 Hp2.
    assert (b = true -> a = a' /\ args = args'') as Hb' by (intros Hb'; naive_solver).
    unfold flags. cbn. constructor; [|apply IH; [done..|]; intros Ht; by apply Hb'].
    destruct a as [l|], a' as [l'|]; try done; cbn; constructor.
    apply zip_agree; [done..|]. intros Ht. destruct (Hb' Ht) as [[=] _]. done.
Qed.

Lemma pairs_first args args' shapes : Forall2 fits shapes args -> Forall2 fits shapes args' ->
  map present args = map present args' ->
  arrays_related (fun x y => x.1 = y) (zip_with pairs args args') args /\
  arrays_related (fun x y => x.2 = y) (zip_with pairs args args') args'.
Proof.
  intros Hargs. revert args'. induction Hargs as [|shape a shapes args Ha Hargs IH]; intros args' Hargs' Hp.
  - inversion Hargs'. split; constructor.
  - inversion Hargs' as [|? a' ? args'' Ha' Hargs'']; subst. cbn in Hp. injection Hp as Hp1 Hp2.
    destruct (IH args'' Hargs'' Hp2) as [IH1 IH2].
    assert (forall (l l' : list F), length l = length l' ->
      Forall2 (fun x y => x.1 = y) (zip l l') l /\ Forall2 (fun x y => x.2 = y) (zip l l') l') as Hzip.
    { clear. induction l as [|x l IH]; intros [|x' l'] Hl; try done; try (by split; constructor).
      destruct (IH l') as [H1 H2]; [by injection Hl|]. split; by constructor. }
    destruct a as [l|], a' as [l'|]; try done; cbn in *; [|split; (constructor; [constructor|done])].
    destruct (Hzip l l') as [H1 H2]; [congruence|]. split; (constructor; [by constructor|done]).
Qed.

Lemma all_set_agree fs xs : forallb all_set fs = true -> arrays_related agree fs xs ->
  forall l l', Forall2 (option_Forall2 (Forall2 (fun (x : F * F) y => x.1 = y))) xs l ->
  Forall2 (option_Forall2 (Forall2 (fun (x : F * F) y => x.2 = y))) xs l' -> l = l'.
Proof.
  intros Hset Hrel. induction Hrel as [|a x fs xs Ha Hrel IH]; intros l l' H1 H2; inversion H1 as [|? y ? ys Hy Hys]; subst;
    inversion H2 as [|? y' ? ys' Hy' Hys']; subst; [done|].
  cbn in Hset. apply andb_true_iff in Hset as [Hseta Hset]. f_equal; [|by apply IH].
  destruct Ha as [b p Hbp|]; inversion Hy as [? u Hu|]; inversion Hy' as [? u' Hu'|]; subst; [|done].
  f_equal. clear -Hseta Hbp Hu Hu'. cbn in Hseta. revert u u' Hu Hu'.
  induction Hbp as [|b x bs xs Hb Hbs IH]; intros u u' Hu Hu'; inversion Hu; inversion Hu'; subst; [done|].
  cbn in Hseta. apply andb_true_iff in Hseta as [Hb1 Hset]. f_equal; [by apply Hb|by apply IH].
Qed.

Lemma related_fits {A B} (rel : A -> B -> Prop) shapes l l' : Forall2 fits shapes l -> arrays_related rel l l' ->
  Forall2 fits shapes l'.
Proof.
  intros H. revert l'. induction H as [|s a ss l Ha H IH]; intros l' Hr; inversion Hr as [|? b ? l'' Hb Hr']; subst; constructor.
  - destruct Hb as [u w Huw|]; cbn in *; [|done]. by rewrite <- (Forall2_length Huw).
  - by apply IH.
Qed.
End shapes.

(** Writing keeps the shapes of the results. *)
Lemma run_shapes {F} {O : Ops F} args code : forall m out, run args code m = Some out ->
  map (fmap length) (m_res out) = map (fmap length) (m_res m).
Proof.
  induction code as [|ins code IH]; intros m out Hr; cbn in Hr; [by simplify_eq|].
  apply bind_Some in Hr as (m1 & Hs & Hr). rewrite (IH _ _ Hr). clear IH Hr.
  destruct ins; cbn in Hs; repeat (apply bind_Some in Hs as (? & ? & Hs)); simplify_eq; try done. cbn.
  unfold write_res in H0. destruct (m_res m !! o) as [[l|]|] eqn:Ho; [|by simplify_eq|done].
  destruct (i <? length l)%nat; [|done]. simplify_eq.
  apply list_eq. intros k. rewrite !list_lookup_fmap. destruct (decide (o = k)) as [->|Hk].
  - rewrite list_lookup_insert_eq by (by eapply lookup_lt_Some). rewrite Ho. cbn. by rewrite length_insert.
  - by rewrite list_lookup_insert_ne.
Qed.

Lemma well_shaped_calls {F} (O : Ops F) f i args res res' : well_shaped (f, i) = true ->
  Forall2 fits (f_sparsity_in i) args -> Forall2 fits (f_sparsity_out i) res -> Forall2 fits (f_sparsity_out i) res' ->
  map present res = map present res' ->
  exists out, call_casadi (f_code f) args res = Some out /\ call_casadi (f_code f) args res' = Some out /\
    map (fmap length) out = map (fmap length) res.
Proof.
  intros Hw Hargs Hres Hres' Hp. unfold well_shaped in Hw. rewrite !andb_true_iff, !Nat.eqb_eq in Hw.
  destruct Hw as [_ Hw]. destruct (call_casadi (O:=flag_ops) _ _ _) as [fs0|] eqn:Hf0; [|done].
  unfold call_casadi in Hf0. apply fmap_Some in Hf0 as (m0 & Hm0 & ->).
  assert (forall b shapes (l : list (option (list F))), Forall2 fits shapes l ->
    Forall2 nulled (flags b shapes (all_present shapes)) (flags b shapes (map present l))) as Hn
    by (intros b shapes l Hl; apply flags_nulled; rewrite length_map; symmetry; apply (Forall2_length Hl)).
  destruct (run_nulled _ _ _ (Hn true _ _ Hargs) (flags_set _)
    {| m_regs := ∅; m_res := flags false (f_sparsity_out i) (all_present (f_sparsity_out i)) |}
    {| m_regs := ∅; m_res := flags false (f_sparsity_out i) (map present res) |} _ eq_refl (Hn false _ _ Hres) Hm0) as (m1 & Hm1 & Hn1).
  apply (nulled_set _ _ Hn1) in Hw.
  assert (call_casadi (O:=flag_ops) (f_code f) (flags true (f_sparsity_in i) (map present args)) (flags false (f_sparsity_out i) (map present res)) = Some (m_res m1)) as Hf
    by (unfold call_casadi; by rewrite Hm1).
  pose proof (flags_agree true (f_sparsity_in i) args args Hargs Hargs eq_refl (fun _ => eq_refl)) as Hra.
  pose proof (flags_agree false (f_sparsity_out i) res res' Hres Hres' Hp ltac:(done)) as Hrr.
  destruct (call_related agree (agree_related O) _ _ _ _ _ _ Hra Hrr Hf) as (ps & Hps & Hagree).
  destruct (pairs_first args args _ Hargs Hargs eq_refl) as [Ha1 Ha2].
  destruct (pairs_first res res' _ Hres Hres' Hp) as [Hr1 Hr2].
  destruct (call_related _ (first_related O) _ _ _ _ _ _ Ha1 Hr1 Hps) as (out & Ho1 & Hx1).
  destruct (call_related _ (second_related O) _ _ _ _ _ _ Ha2 Hr2 Hps) as (out' & Ho2 & Hx2).
  pose proof (all_set_agree _ ps Hw Hagree out out' Hx1 Hx2) as ->. exists out'. split; [done|]. split; [done|].
  unfold call_casadi in Ho1. apply fmap_Some in Ho1 as (m & Hm & ->). by rewrite (run_shapes _ _ _ _ Hm).
Qed.

(** ** Value numbers

    The number of a value is the position of the instruction that computed it. *)

Fixpoint number_values (code : list instruction) (n : N) (regs : Nmap N) (outs : list (nat * nat * N))
    : option (list (nat * nat * N)) :=
  match code with
  | [] => Some outs
  | ins :: code =>
      let set d := number_values code (n + 1)%N (<[d := n]> regs) outs in
      match ins with
      | Arg d _ _ | Lit d _ _ | Add d _ _ | Sub d _ _ | Mul d _ _ | Div d _ _ | Neg d _ | Sq d _ | Sin d _ | Cos d _ | Sqrt d _ => set d
      | Out o i x => k ← regs !! x; number_values code (n + 1)%N regs ((o, i, k) :: outs)
      end
  end.

(** The number of the value that an element of a result is left with. *)
Fixpoint value_number (outs : list (nat * nat * N)) (o i : nat) : option N :=
  match outs with
  | [] => None
  | (o', i', k) :: outs => if ((o =? o') && (i =? i'))%nat then Some k else value_number outs o i
  end.

Section numbers.
Context {F : Type} `{O : Ops F}.

(** [vals]: the values by number. *)
Definition numbers_hold (vals : Nmap F) (n : N) (regs : Nmap N) (outs : list (nat * nat * N)) (m : machine F) : Prop :=
  (forall d k, regs !! d = Some k -> (k < n)%N /\ m_regs m !! d = vals !! k) /\
  (forall o i k, value_number outs o i = Some k -> (k < n)%N /\ is_Some (vals !! k) /\
     forall l, m_res m !! o = Some (Some l) -> l !! i = vals !! k).

Lemma number_assign vals n regs outs m d v : numbers_hold vals n regs outs m ->
  numbers_hold (<[n := v]> vals) (n + 1) (<[d := n]> regs) outs (assign d v m).
Proof.
  intros [Hr Ho]. split.
  - intros d' k. cbn. destruct (decide (d = d')) as [->|Hd].
    + rewrite !lookup_insert_eq. intros [= <-]. rewrite lookup_insert_eq. split; [lia|done].
    + rewrite !lookup_insert_ne by done. intros Hk. destruct (Hr _ _ Hk) as [? ->].
      rewrite lookup_insert_ne by lia. split; [lia|done].
  - intros o i k Hk. destruct (Ho _ _ _ Hk) as (? & ? & ?). rewrite lookup_insert_ne by lia. split; [lia|done].
Qed.

Lemma number_out vals n regs outs m o i x v res k : numbers_hold vals n regs outs m ->
  m_regs m !! x = Some v -> regs !! x = Some k -> write_res (m_res m) o i v = Some res ->
  numbers_hold vals (n + 1) regs ((o, i, k) :: outs) {| m_regs := m_regs m; m_res := res |}.
Proof.
  intros [Hr Ho] Hv Hk Hw. destruct (Hr _ _ Hk) as [Hkn Hvk]. rewrite Hv in Hvk. split.
  - intros d k' Hd. destruct (Hr _ _ Hd) as [? ?]. split; [lia|done].
  - intros o' i' k'. cbn. unfold write_res in Hw.
    destruct (m_res m !! o) as [[l|]|] eqn:Hl; [destruct (i <? length l)%nat eqn:Hi; [|done]| |done];
      injection Hw as <-; destruct ((o' =? o) && (i' =? i))%nat eqn:Heq.
    + apply andb_true_iff in Heq as [->%Nat.eqb_eq ->%Nat.eqb_eq]. intros [= <-].
      split; [lia|]. split; [by eexists|]. intros l'. rewrite list_lookup_insert_eq by (by eapply lookup_lt_Some).
      intros [= <-]. rewrite list_lookup_insert_eq by (by apply Nat.ltb_lt). done.
    + intros Hn. destruct (Ho _ _ _ Hn) as (? & ? & Hl'). split; [lia|]. split; [done|]. intros l'.
      destruct (decide (o = o')) as [->|Hne].
      * rewrite list_lookup_insert_eq by (by eapply lookup_lt_Some). intros [= <-].
        rewrite list_lookup_insert_ne; [by apply Hl'|]. intros ->. by rewrite !Nat.eqb_refl in Heq.
      * rewrite list_lookup_insert_ne by done. apply Hl'.
    + apply andb_true_iff in Heq as [->%Nat.eqb_eq ->%Nat.eqb_eq]. intros [= <-].
      split; [lia|]. split; [by eexists|]. intros l'. by rewrite Hl.
    + intros Hn. destruct (Ho _ _ _ Hn) as (? & ? & Hl'). by repeat split; [lia| |].
Qed.

Lemma numbers_sound args code : forall vals n regs outs m out outs',
  numbers_hold vals n regs outs m -> number_values code n regs outs = Some outs' -> run args code m = Some out ->
  exists vals' n' regs', numbers_hold vals' n' regs' outs' out.
Proof.
  induction code as [|ins code IH]; intros vals n regs outs m out outs' Hh Hn Hr; cbn in Hr.
  { cbn in Hn; simplify_eq. by exists vals, n, regs. }
  apply bind_Some in Hr as (m1 & Hs & Hr).
  destruct ins; cbn in Hn, Hs; repeat (apply bind_Some in Hs as (? & ? & Hs)); simplify_eq;
    try (eapply IH; [|exact Hn|exact Hr]; by apply number_assign).
  apply bind_Some in Hn as (k & Hk & Hn). eapply IH; [|exact Hn|exact Hr]. by eapply number_out.
Qed.

(** Elements with the same number are the same value after a call. *)
Lemma same_number code args res out o i i' l n : call_casadi code args res = Some out ->
  out !! o = Some (Some l) ->
  (outs ← number_values code 0 ∅ []; value_number outs o i) = Some n ->
  (outs ← number_values code 0 ∅ []; value_number outs o i') = Some n -> l !! i = l !! i'.
Proof.
  unfold call_casadi. intros (m & Hr & ->)%fmap_Some Hl. destruct (number_values code 0 ∅ []) as [outs|] eqn:Hn; [|done].
  cbn. intros Hi Hi'. destruct (numbers_sound args code ∅ 0 ∅ [] _ _ _ ltac:(split; [intros ??; by rewrite lookup_empty|done]) Hn Hr)
    as (vals & n' & regs & _ & Ho).
  destruct (Ho _ _ _ Hi) as (_ & _ & H1), (Ho _ _ _ Hi') as (_ & _ & H2). by rewrite (H1 l Hl), (H2 l Hl).
Qed.
End numbers.

(** ** Degrees

    What is known of a number as a function of a factor: nothing, that it is
    zero, or that it is homogeneous of a degree. *)

Inductive degree := NoDegree | IsZero | Degree (k : nat).

Definition degree_add (x y : degree) : degree :=
  match x, y with
  | IsZero, d | d, IsZero => d
  | Degree k, Degree k' => if (k =? k')%nat then Degree k else NoDegree
  | _, _ => NoDegree
  end.
Definition degree_fun (x : degree) : degree :=
  match x with IsZero | Degree O => Degree O | _ => NoDegree end.
Definition degree_ops : Ops degree := {|
  lit n k := if n =? 0 then IsZero else Degree 0;
  op_add := degree_add;
  op_sub := degree_add;
  op_mul x y :=
    match x, y with
    | IsZero, _ | _, IsZero => IsZero
    | Degree k, Degree k' => Degree (k + k')
    | _, _ => NoDegree
    end;
  op_div x y :=
    match x, y with
    | IsZero, _ => IsZero
    | Degree k, Degree O => Degree k
    | _, _ => NoDegree
    end;
  op_neg x := x;
  op_sin := degree_fun;
  op_cos := degree_fun;
  op_sqrt := degree_fun
|}.

(** The number with the factor [t], and without. *)
Definition homogeneous (t : R) (d : degree) (x : R * R) : Prop :=
  match d with
  | NoDegree => True
  | IsZero => x.1 = 0%R /\ x.2 = 0%R
  | Degree k => x.1 = (t ^ k * x.2)%R
  end.

Lemma literal_zero k : real_of (float_literal 0 k) = 0%R.
Proof.
  unfold float_literal, decimal_double. rewrite Z.mul_0_l, Z.mod_0_l, Z.div_0_l by (apply Z.pow_nonzero; lia). done.
Qed.

Lemma homogeneous_related t : ops_related (OA:=degree_ops) (OB:=pair_ops real_ops) (homogeneous t).
Proof.
  split; cbn.
  - intros n k. destruct (Z.eqb_spec n 0) as [->|_]; cbn; [by rewrite literal_zero|ring].
  - intros [| |k] [x1 x2] [| |k'] [y1 y2]; cbn; try done; try (intros ? [-> ->]; rewrite !Rplus_0_r; done);
      try (intros [-> ->] ?; rewrite !Rplus_0_l; done).
    destruct (Nat.eqb_spec k k') as [->|_]; cbn; [|done]. intros -> ->. ring.
  - intros [| |k] [x1 x2] [| |k'] [y1 y2]; cbn; try done; try (intros ? [-> ->]; rewrite !Rminus_0_r; done).
    + intros [-> ->] ->. ring.
    + destruct (Nat.eqb_spec k k') as [->|_]; cbn; [|done]. intros -> ->. ring.
  - intros [| |k] [x1 x2] [| |k'] [y1 y2]; cbn; try done; try (intros ? [-> ->]; by rewrite !Rmult_0_r);
      try (intros [-> ->] ?; by rewrite !Rmult_0_l).
    intros -> ->. rewrite pow_add. ring.
  - intros [| |k] [x1 x2] [| |[|k']] [y1 y2]; cbn; try done; try (intros [-> ->] ?; by rewrite !Rdiv_0_l).
    intros -> ->. rewrite Rmult_1_l. unfold Rdiv. ring.
  - intros [| |k] [x1 x2]; cbn; try done; [intros [-> ->]; by rewrite Ropp_0|]. intros ->. ring.
  - intros [| |[|k]] [x1 x2]; cbn; try done; [intros [-> ->]|intros ->]; rewrite !Rmult_1_l; done.
  - intros [| |[|k]] [x1 x2]; cbn; try done; [intros [-> ->]|intros ->]; rewrite !Rmult_1_l; done.
  - intros [| |[|k]] [x1 x2]; cbn; try done; [intros [-> ->]|intros ->]; rewrite !Rmult_1_l; done.
Qed.

Definition of_degree (k : nat) (d : degree) : bool :=
  match d with IsZero => true | Degree k' => (k =? k')%nat | NoDegree => false end.

(** Every result has the degree [k] in what [dargs] says has a degree. *)
Definition result_degree (f : casadi_function) (dargs : list (option (list degree))) (n k : nat) : bool :=
  match call_casadi (O:=degree_ops) (f_code f) dargs [Some (replicate n NoDegree)] with
  | Some [Some l] => forallb (of_degree k) l
  | _ => false
  end.

Lemma degree_call t f dargs shapes args args' n k out : result_degree f dargs n k = true ->
  Forall2 fits shapes args -> Forall2 fits shapes args' -> map present args' = map present args ->
  arrays_related (homogeneous t) dargs (zip_with pairs args' args) -> length out = n ->
  exists o, call_casadi (f_code f) args [Some out] = Some [Some o] /\
    call_casadi (f_code f) args' [Some out] = Some [Some (map (Rmult (t ^ k)) o)].
Proof.
  intros Hd Hfit Hfit' Hp Hargs Hn. unfold result_degree in Hd.
  destruct (call_casadi (O:=degree_ops) _ _ _) as [[|[ds|] [|]]|] eqn:Hc; try done.
  assert (arrays_related (homogeneous t) [Some (replicate n NoDegree)] [Some (zip out out)]) as Hres.
  { apply Forall2_cons_2; [|constructor]. constructor. rewrite <- Hn. clear. induction out; by constructor. }
  destruct (call_related _ (homogeneous_related t) _ _ _ _ _ _ Hargs Hres Hc) as (ps & Hps & Hrel).
  inversion Hrel as [|? o ? ? Ho Hnil]; subst. inversion Ho as [? p Hdp|]; subst. inversion Hnil; subst.
  destruct (pairs_first args' args shapes Hfit' Hfit Hp) as [Ha1 Ha2].
  assert (arrays_related (fun (x : R * R) y => x.1 = y) [Some (zip out out)] [Some out] /\
    arrays_related (fun (x : R * R) y => x.2 = y) [Some (zip out out)] [Some out]) as [Hr1 Hr2].
  { split; (apply Forall2_cons_2; [|constructor]); constructor; clear; induction out; by constructor. }
  destruct (call_related _ (first_related real_ops) _ _ _ _ _ _ Ha1 Hr1 Hps) as (o1 & Ho1 & Hx1).
  destruct (call_related _ (second_related real_ops) _ _ _ _ _ _ Ha2 Hr2 Hps) as (o2 & Ho2 & Hx2).
  inversion Hx1 as [|? y1 ? ? Hy1 Hn1]; subst. inversion Hy1 as [? l1 Hl1|]; subst. inversion Hn1; subst.
  inversion Hx2 as [|? y2 ? ? Hy2 Hn2]; subst. inversion Hy2 as [? l2 Hl2|]; subst. inversion Hn2; subst.
  exists l2. split; [exact Ho2|]. rewrite Ho1. do 3 f_equal. clear - Hd Hdp Hl1 Hl2. revert l1 l2 Hl1 Hl2.
  induction Hdp as [|d [x1 x2] ds p Hh Hdp IH]; intros l1 l2 Hl1 Hl2; inversion Hl1; inversion Hl2; subst; [done|].
  cbn in Hd. apply andb_true_iff in Hd as [Hk Hd]. cbn [map]. f_equal; [|by apply IH].
  cbn [fst snd] in *. destruct d as [| |k']; [done|destruct Hh as [Hz1 Hz2]; cbn in *; subst; by rewrite Rmult_0_r|].
  by apply Nat.eqb_eq in Hk as ->.
Qed.

(** ** Values that two functions share

    Two generated functions often compute the same expression.  The values of one
    function are numbered, with equal expressions given one number; a run of the
    other on these numbers then tells which of its results are values of the
    first, in every arithmetic. *)

(** *** Expressions *)

(** An expression, its operands by number. *)
Inductive expression :=
| EArg (a i : nat)
| ELit (n : Z) (k : nat)
| EAdd (x y : N)
| ESub (x y : N)
| EMul (x y : N)
| EDiv (x y : N)
| ENeg (x : N)
| ESin (x : N)
| ECos (x : N)
| ESqrt (x : N).
#[export] Instance expression_eq_dec : EqDecision expression.
Proof. solve_decision. Defined.

(** The numbers of expressions, by their first operand. *)
Definition first_operand (e : expression) : N :=
  match e with
  | EArg _ _ | ELit _ _ => 0
  | EAdd x _ | ESub x _ | EMul x _ | EDiv x _ | ENeg x | ESin x | ECos x | ESqrt x => x
  end.
Definition table : Type := Nmap (list (expression * N)).
Fixpoint find_expression (l : list (expression * N)) (e : expression) : option N :=
  match l with
  | [] => None
  | (e', n) :: l => if decide (e' = e) then Some n else find_expression l e
  end.
Definition find_number (t : table) (e : expression) : option N := l ← t !! first_operand e; find_expression l e.
Definition add_number (t : table) (e : expression) (n : N) : table :=
  <[first_operand e := (e, n) :: default [] (t !! first_operand e)]> t.

Lemma find_add t e n e' : find_number (add_number t e n) e' = if decide (e = e') then Some n else find_number t e'.
Proof.
  unfold find_number, add_number, table in *. destruct (decide (first_operand e = first_operand e')) as [Ho|Ho].
  - rewrite <- Ho. rewrite lookup_insert_eq. cbn. destruct (decide (e = e')) as [->|]; [done|].
    by destruct (t !! first_operand e).
  - rewrite lookup_insert_ne by done. destruct (decide (e = e')) as [->|]; [done|]. done.
Qed.

(** *** Numbering *)

(** What an instruction assigns, and where. *)
Definition assigned (regs : Nmap N) (ins : instruction) : option (N * expression) :=
  let get x := regs !! x in
  match ins with
  | Arg d a i => Some (d, EArg a i)
  | Lit d n k => Some (d, ELit n k)
  | Add d x y => x ← get x; y ← get y; Some (d, EAdd x y)
  | Sub d x y => x ← get x; y ← get y; Some (d, ESub x y)
  | Mul d x y => x ← get x; y ← get y; Some (d, EMul x y)
  | Div d x y => x ← get x; y ← get y; Some (d, EDiv x y)
  | Neg d x => x ← get x; Some (d, ENeg x)
  | Sq d x => x ← get x; Some (d, EMul x x)
  | Sin d x => x ← get x; Some (d, ESin x)
  | Cos d x => x ← get x; Some (d, ECos x)
  | Sqrt d x => x ← get x; Some (d, ESqrt x)
  | Out _ _ _ => None
  end.

(** The numbers of a function's expressions and of what it writes. *)
Fixpoint number_expressions (code : list instruction) (t : table) (next : N) (regs : Nmap N) (outs : list (nat * nat * N))
    : option (table * list (nat * nat * N)) :=
  match code with
  | [] => Some (t, outs)
  | ins :: code =>
      match ins with
      | Out o i x => n ← regs !! x; number_expressions code t next regs ((o, i, n) :: outs)
      | _ =>
          '(d, e) ← assigned regs ins;
          match find_number t e with
          | Some n => number_expressions code t next (<[d := n]> regs) outs
          | None => number_expressions code (add_number t e next) (next + 1)%N (<[d := next]> regs) outs
          end
      end
  end.

(** Numbers as the values of another function: unknown where the first does not
    compute the expression. *)
Definition shared_ops (t : table) : Ops (option N) :=
  let op2 (f : N -> N -> expression) x y := x ← x; y ← y; find_number t (f x y) in
  let op1 (f : N -> expression) x := x ← x; find_number t (f x) in {|
  lit n k := find_number t (ELit n k);
  op_add := op2 EAdd;
  op_sub := op2 ESub;
  op_mul := op2 EMul;
  op_div := op2 EDiv;
  op_neg := op1 ENeg;
  op_sin := op1 ESin;
  op_cos := op1 ECos;
  op_sqrt := op1 ESqrt
|}.

(** *** Soundness *)

Section values.
Context {F : Type} `{O : Ops F} (args : list (option (list F))).

(** The value of an expression where the numbers stand for [vals]. *)
Definition expression_value (vals : Nmap F) (e : expression) : option F :=
  let get x := vals !! x in
  match e with
  | EArg a i => read_arg args a i
  | ELit n k => Some (lit n k)
  | EAdd x y => u ← get x; v ← get y; Some (op_add u v)
  | ESub x y => u ← get x; v ← get y; Some (op_sub u v)
  | EMul x y => u ← get x; v ← get y; Some (op_mul u v)
  | EDiv x y => u ← get x; v ← get y; Some (op_div u v)
  | ENeg x => u ← get x; Some (op_neg u)
  | ESin x => u ← get x; Some (op_sin u)
  | ECos x => u ← get x; Some (op_cos u)
  | ESqrt x => u ← get x; Some (op_sqrt u)
  end.

Definition table_holds (vals : Nmap F) (t : table) : Prop :=
  forall e n, find_number t e = Some n -> exists v, expression_value vals e = Some v /\ vals !! n = Some v.

(** Numbers below [next] have values, others have none yet. *)
Record numbered (vals : Nmap F) (t : table) (next : N) (regs : Nmap N) (outs : list (nat * nat * N)) (m : machine F) : Prop := {
  nb_fresh n : (next <= n)%N -> vals !! n = None;
  nb_table : table_holds vals t;
  nb_regs d n : regs !! d = Some n -> exists v, vals !! n = Some v /\ m_regs m !! d = Some v;
  nb_outs o i n : value_number outs o i = Some n ->
    exists v, vals !! n = Some v /\ forall l, m_res m !! o = Some (Some l) -> l !! i = Some v
}.

Lemma expression_value_more vals n v e u : vals !! n = None -> expression_value vals e = Some u ->
  expression_value (<[n := v]> vals) e = Some u.
Proof.
  intros Hn. assert (forall x w, vals !! x = Some w -> <[n := v]> vals !! x = Some w) as Hmore
    by (intros x w Hx; rewrite lookup_insert_ne; [done|congruence]).
  destruct e; cbn; try done; intros He; repeat (apply bind_Some in He as (? & ?%Hmore & He));
    repeat match goal with H : <[_ := _]> vals !! _ = Some _ |- _ => rewrite H; clear H end; done.
Qed.

(** The value that the instruction assigns is that of its expression. *)
Lemma assigned_step vals t next regs outs m ins d e m' : numbered vals t next regs outs m ->
  assigned regs ins = Some (d, e) -> step args m ins = Some m' ->
  exists v, expression_value vals e = Some v /\ m' = assign d v m.
Proof.
  intros Hnb Ha Hs.
  destruct ins; cbn in Ha, Hs; repeat (let H := fresh in apply bind_Some in Ha as (? & H & Ha);
      let v := fresh in let Hv := fresh in let Hm := fresh in destruct (nb_regs _ _ _ _ _ _ Hnb _ _ H) as (v & Hv & Hm);
      rewrite Hm in Hs; cbn in Hs);
    try apply bind_Some in Hs as (? & ? & Hs); simplify_eq; cbn;
    repeat match goal with H : vals !! _ = Some _ |- _ => rewrite H; clear H end; by eexists.
Qed.

Lemma numbered_assign vals t next regs outs m d n v : numbered vals t next regs outs m -> vals !! n = Some v ->
  numbered vals t next (<[d := n]> regs) outs (assign d v m).
Proof.
  intros [Hf Ht Hr Ho] Hn. split; [done..| |done]. intros d' n'. cbn. destruct (decide (d = d')) as [->|Hd].
  - rewrite !lookup_insert_eq. intros [= <-]. by exists v.
  - rewrite !lookup_insert_ne by done. apply Hr.
Qed.
Lemma numbered_new vals t next regs outs m e v : numbered vals t next regs outs m -> expression_value vals e = Some v ->
  numbered (<[next := v]> vals) (add_number t e next) (next + 1) regs outs m.
Proof.
  intros [Hf Ht Hr Ho] He. assert (vals !! next = None) as Hn by (apply Hf; lia).
  assert (forall x w, vals !! x = Some w -> <[next := v]> vals !! x = Some w) as Hmore
    by (intros x w Hx; rewrite lookup_insert_ne; [done|congruence]).
  split.
  - intros n Hle. rewrite lookup_insert_ne by lia. apply Hf. lia.
  - intros e' n. rewrite find_add. destruct (decide (e = e')) as [<-|].
    + intros [= <-]. exists v. split; [by apply expression_value_more|apply lookup_insert_eq].
    + intros (u & Hu & Hn')%Ht. exists u. split; [by apply expression_value_more|by apply Hmore].
  - intros d n (u & Hu & Hd)%Hr. exists u. split; [by apply Hmore|done].
  - intros o i n (u & Hu & Hd)%Ho. exists u. split; [by apply Hmore|done].
Qed.

Lemma numbered_out vals t next regs outs m o i x n v res : numbered vals t next regs outs m ->
  regs !! x = Some n -> m_regs m !! x = Some v -> write_res (m_res m) o i v = Some res ->
  numbered vals t next regs ((o, i, n) :: outs) {| m_regs := m_regs m; m_res := res |}.
Proof.
  intros [Hf Ht Hr Ho] Hn Hv Hw. destruct (Hr _ _ Hn) as (v' & Hvn & Hv'). assert (v' = v) as -> by congruence.
  split; [done..|]. intros o' i' n'. cbn. unfold write_res in Hw.
  destruct ((o' =? o) && (i' =? i))%nat eqn:Heq.
  - apply andb_true_iff in Heq as [->%Nat.eqb_eq ->%Nat.eqb_eq]. intros [= <-]. exists v. split; [done|]. intros l.
    destruct (m_res m !! o) as [[l0|]|] eqn:Hl; [|injection Hw as <-; by rewrite Hl|done].
    destruct (Nat.ltb_spec i (length l0)) as [Hi|]; [|done]. injection Hw as <-.
    rewrite list_lookup_insert_eq by (by eapply lookup_lt_Some). intros [= <-]. by apply list_lookup_insert_eq.
  - intros (u & Hu & Hl)%Ho. exists u. split; [done|]. intros l.
    destruct (m_res m !! o) as [[l0|]|] eqn:Hl0; [|injection Hw as <-; exact (Hl l)|done].
    destruct (i <? length l0)%nat; [|done]. injection Hw as <-. destruct (decide (o = o')) as [->|Hoo].
    + rewrite list_lookup_insert_eq by (by eapply lookup_lt_Some). intros [= <-].
      rewrite Nat.eqb_refl in Heq. apply Nat.eqb_neq in Heq. rewrite list_lookup_insert_ne by done. by apply Hl.
    + rewrite list_lookup_insert_ne by done. apply Hl.
Qed.

Lemma numbering_sound code : forall vals t next regs outs m t' outs' m', numbered vals t next regs outs m ->
  number_expressions code t next regs outs = Some (t', outs') -> run args code m = Some m' ->
  exists vals' next' regs', numbered vals' t' next' regs' outs' m'.
Proof.
  induction code as [|ins code IH]; intros vals t next regs outs m t' outs' m' Hnb Hn Hr; cbn in Hr.
  { cbn in Hn. simplify_eq. by exists vals, next, regs. }
  apply bind_Some in Hr as (m1 & Hs & Hr).
  assert ((exists o i x, ins = Out o i x) \/ exists d e, assigned regs ins = Some (d, e) /\
    match find_number t e with
    | Some n => number_expressions code t next (<[d := n]> regs) outs
    | None => number_expressions code (add_number t e next) (next + 1) (<[d := next]> regs) outs
    end = Some (t', outs')) as [(o & i & x & ->)|(d & e & Ha & Hn')].
  { destruct ins; [..|left; by eauto]; right; cbn -[assigned] in Hn; apply bind_Some in Hn as ([d' e] & Ha & Hn); by exists d', e. }
  - cbn in Hn, Hs. apply bind_Some in Hn as (n & Hx & Hn). apply bind_Some in Hs as (v & Hv & Hs).
    apply bind_Some in Hs as (res & Hw & [= <-]). eapply IH; [|exact Hn|exact Hr]. by eapply numbered_out.
  - destruct (assigned_step _ _ _ _ _ _ _ _ _ _ Hnb Ha Hs) as (v & Hv & ->).
    destruct (find_number t e) as [n|] eqn:Hf; (eapply IH; [|exact Hn'|exact Hr]).
    + apply numbered_assign; [done|]. destruct (nb_table _ _ _ _ _ _ Hnb _ _ Hf) as (v' & Hv' & Hvn). congruence.
    + apply numbered_assign; [by apply numbered_new|apply lookup_insert_eq].
Qed.

(** The values of a call by number. *)
Lemma call_numbered code t outs res out : number_expressions code ∅ 0 ∅ [] = Some (t, outs) ->
  call_casadi code args res = Some out ->
  exists vals : Nmap F, table_holds vals t /\
    forall o i n l, value_number outs o i = Some n -> out !! o = Some (Some l) -> exists v, vals !! n = Some v /\ l !! i = Some v.
Proof.
  unfold call_casadi. intros Hn (m & Hr & ->)%fmap_Some.
  assert (numbered ∅ ∅ 0 ∅ [] {| m_regs := ∅; m_res := res |}) as H0.
  { split; [intros n _; apply lookup_empty|intros e n|intros d n; by rewrite lookup_empty|done].
    unfold find_number, table. by rewrite lookup_empty. }
  destruct (numbering_sound code ∅ ∅ 0 ∅ [] {| m_regs := ∅; m_res := res |} _ _ _ H0 Hn Hr) as (vals & next & regs & [Hf Ht Hrg Ho]).
  exists vals. split; [done|]. intros o i n l (v & Hv & Hl)%Ho Hol. exists v. split; [done|]. by apply Hl.
Qed.

Definition same_value (vals : Nmap F) (a : option N) (x : F) : Prop := forall n, a = Some n -> vals !! n = Some x.

Lemma shared_related vals t : table_holds vals t -> ops_related (OA:=shared_ops t) (OB:=O) (same_value vals).
Proof.
  intros Ht. split; unfold same_value; cbn.
  1: intros n k v Hf; destruct (Ht _ _ Hf) as (u & [= <-] & Hu); done.
  1-4: intros [x|] u [y|] v Hx Hy n Hf; try done; destruct (Ht _ _ Hf) as (w & Hw & Hn); cbn in Hw;
    rewrite (Hx _ eq_refl), (Hy _ eq_refl) in Hw; cbn in Hw; congruence.
  all: intros [x|] u Hx n Hf; try done; destruct (Ht _ _ Hf) as (w & Hw & Hn); cbn in Hw;
    rewrite (Hx _ eq_refl) in Hw; cbn in Hw; congruence.
Qed.
End values.

(** ** Superposition

    Which results of a straight-line function are linear in some of its arguments:
    a run on kinds tells, beside three runs on numbers, the third of which has a
    combination of the arguments of the others. *)

(** *** Kinds *)

(** Nothing is known; zero; the same in all three runs; linear. *)
Inductive kind := Other | Zero | Same | Linear.

(** Where the factors of the combination sum up to 1, [affine], what is the same in
    all runs is linear too. *)
Definition kind_add (affine : bool) (x y : kind) : kind :=
  match x, y with
  | Zero, k | k, Zero => k
  | Same, Same => Same
  | Linear, Linear => Linear
  | Same, Linear | Linear, Same => if affine then Linear else Other
  | _, _ => Other
  end.
Definition kind_mul (x y : kind) : kind :=
  match x, y with
  | Zero, _ | _, Zero => Zero
  | Same, Same => Same
  | Same, Linear | Linear, Same => Linear
  | _, _ => Other
  end.
Definition kind_div (x y : kind) : kind :=
  match x, y with
  | Zero, _ => Zero
  | Same, Same => Same
  | Linear, Same => Linear
  | _, _ => Other
  end.
Definition kind_fun (x : kind) : kind := match x with Zero | Same => Same | _ => Other end.
Definition kind_ops (affine : bool) : Ops kind := {|
  lit n k := Same;
  op_add := kind_add affine;
  op_sub := kind_add affine;
  op_mul := kind_mul;
  op_div := kind_div;
  op_neg x := x;
  op_sin := kind_fun;
  op_cos := kind_fun;
  op_sqrt := kind_fun
|}.

(** *** The three runs *)

Inductive part := First | Second | Both.

Section parts.
Context (literal : Z -> nat -> spec_float) (s t : R) (affine : bool) (Haffine : affine = true -> t = (1 - s)%R).

Definition part_ops : Ops (part -> R) := {|
  lit n k _ := real_of (literal n k);
  op_add f g i := (f i + g i)%R;
  op_sub f g i := (f i - g i)%R;
  op_mul f g i := (f i * g i)%R;
  op_div f g i := (f i / g i)%R;
  op_neg f i := (- f i)%R;
  op_sin f i := sin (f i);
  op_cos f i := cos (f i);
  op_sqrt f i := R_sqrt.sqrt (f i)
|}.

Definition of_kind (k : kind) (f : part -> R) : Prop :=
  match k with
  | Other => True
  | Zero => forall i, f i = 0%R
  | Same => forall i, f i = f First
  | Linear => f Both = (s * f First + t * f Second)%R
  end.

(** The six numbers of two operands as variables, with what is known of them. *)
Ltac by_parts f g :=
  repeat match goal with
  | H : forall i, _ = _ |- _ => pose proof (H First); pose proof (H Second); pose proof (H Both); clear H
  end;
  try match goal with |- forall i, _ => intros [] end;
  let name x := (try (generalize dependent x; intros ?)) in
  name (f First); name (f Second); name (f Both); name (g First); name (g Second); name (g Both);
  intros; repeat match goal with H : ?x = ?x |- _ => clear H end; subst; unfold Rdiv;
  ring || (match goal with H : _ = (1 - _)%R |- _ => rewrite H end; ring).

Lemma kind_related : ops_related (OA:=kind_ops affine) (OB:=part_ops) of_kind.
Proof.
  assert (forall (g : R -> R) k f, of_kind k f -> of_kind (kind_fun k) (fun i => g (f i))) as Hfun
    by (intros g [] f; cbn; try done; intros Hf i; rewrite (Hf i); try rewrite (Hf First); done).
  split; try exact (Hfun sin); try exact (Hfun cos); try exact (Hfun R_sqrt.sqrt); cbn.
  - done.
  - intros [] f [] g Hf Hg; cbn in *; try (destruct affine; [specialize (Haffine eq_refl)|]); cbn in *; try done; by_parts f g.
  - intros [] f [] g Hf Hg; cbn in *; try (destruct affine; [specialize (Haffine eq_refl)|]); cbn in *; try done; by_parts f g.
  - intros [] f [] g Hf Hg; cbn in *; try (destruct affine; [specialize (Haffine eq_refl)|]); cbn in *; try done; by_parts f g.
  - intros [] f [] g Hf Hg; cbn in *; try (destruct affine; [specialize (Haffine eq_refl)|]); cbn in *; try done; by_parts f g.
  - intros [] f Hf; cbn in *; try done; by_parts f (fun _ : part => 0%R).
Qed.
Lemma part_at i : ops_related (OA:=part_ops) (OB:=exact_ops literal) (fun (f : part -> R) (x : R) => f i = x).
Proof. split; cbn; congruence. Qed.

(** Runs with arguments of the given kinds. *)
Definition part_of (i : part) (fs : list (list (part -> R))) : list (option (list R)) := map (fun l => Some (map (fun f => f i) l)) fs.

Lemma superposed_call code kinds args kouts outs :
  call_casadi (O:=kind_ops affine) code (map Some kinds) (map (fun l : list R => Some (map (fun _ => Other) l)) outs) = Some (map Some kouts) ->
  Forall2 (Forall2 of_kind) kinds args ->
  exists fouts, (forall i, call_casadi (O:=exact_ops literal) code (part_of i args) (map Some outs) = Some (part_of i fouts)) /\
    Forall2 (Forall2 of_kind) kouts fouts.
Proof.
  intros Hc Hargs.
  assert (arrays_related of_kind (map Some kinds) (map Some args)) as Ha by (clear -Hargs; induction Hargs; cbn; constructor; [by constructor|done]).
  assert (arrays_related of_kind (map (fun l : list R => Some (map (fun _ => Other) l)) outs)
    (map (fun l => Some (map (fun x (_ : part) => x) l)) outs)) as Hr.
  { clear. induction outs as [|l outs IH]; constructor; [|done]. constructor. induction l; by constructor. }
  destruct (call_related _ kind_related _ _ _ _ _ _ Ha Hr Hc) as (o & Ho & Hrel).
  assert (exists fouts, o = map Some fouts /\ Forall2 (Forall2 of_kind) kouts fouts) as (fouts & -> & Hf).
  { clear -Hrel. revert o Hrel. induction kouts as [|k kouts IH]; intros o Hrel; inversion Hrel as [|? ? ? o' Hk Ho]; subst; [by exists []|].
    destruct (IH _ Ho) as (fouts & -> & Hf). inversion Hk as [? f Hkf|]; subst. exists (f :: fouts). split; [done|by constructor]. }
  exists fouts. split; [|done]. intros i.
  assert (forall l : list (list (part -> R)), arrays_related (fun (f : part -> R) x => f i = x) (map Some l) (part_of i l)) as Hat.
  { intros l. induction l as [|a l IH]; constructor; [|done]. constructor. apply map_related. }
  assert (arrays_related (fun (f : part -> R) x => f i = x) (map (fun l => Some (map (fun x (_ : part) => x) l)) outs) (map Some outs)) as Hr'.
  { clear. induction outs as [|l outs IH]; constructor; [|done]. constructor. by apply map_related_l. }
  destruct (call_related _ (part_at i) _ _ _ _ _ _ (Hat args) Hr' Ho) as (o & -> & Hrel'). f_equal. clear -Hrel'.
  revert o Hrel'. induction fouts as [|f fouts IH]; intros o Hrel; inversion Hrel as [|? ? ? ? Hk Ho]; subst; [done|].
  cbn. f_equal; [|by apply IH]. inversion Hk as [? l Hl|]; subst. f_equal. symmetry. clear -Hl. induction Hl; cbn; congruence.
Qed.

(** Arguments that are the same in all runs, and that are combined. *)
Definition combine (l1 l2 : list R) : list R := zip_with (fun a b => s * a + t * b)%R l1 l2.
Definition same_part (l : list R) : list (part -> R) := map (fun x _ => x) l.
Definition combined_part (l1 l2 : list R) : list (part -> R) :=
  zip_with (fun a b i => match i with First => a | Second => b | Both => s * a + t * b end)%R l1 l2.

Lemma same_part_at i l : map (fun f => f i) (same_part l) = l.
Proof. unfold same_part. by rewrite map_map, map_id. Qed.
Lemma combined_part_at i l1 l2 : length l1 = length l2 ->
  map (fun f => f i) (combined_part l1 l2) = match i with First => l1 | Second => l2 | Both => combine l1 l2 end.
Proof.
  unfold combined_part, combine. revert l2. induction l1 as [|a l1 IH]; intros [|b l2] Hl; try done; [by destruct i|].
  cbn in Hl |- *. rewrite IH by lia. by destruct i.
Qed.
Lemma same_part_kind l : Forall2 of_kind (replicate (length l) Same) (same_part l).
Proof. induction l; by constructor. Qed.
Lemma combined_part_kind l1 l2 : length l1 = length l2 -> Forall2 of_kind (replicate (length l1) Linear) (combined_part l1 l2).
Proof. revert l2. induction l1 as [|a l1 IH]; intros [|b l2] Hl; try done; constructor; [done|]. apply IH. by injection Hl. Qed.

Definition is_same (k : kind) : bool := match k with Zero | Same => true | _ => false end.
Definition is_linear (k : kind) : bool := match k with Zero | Linear => true | Same => affine | Other => false end.

Lemma same_parts ks fs i : Forall2 of_kind ks fs -> forallb is_same ks = true -> map (fun f => f i) fs = map (fun f => f First) fs.
Proof.
  induction 1 as [|k f ks fs Hf _ IH]; cbn; [done|]. intros [Hk Hks]%andb_true_iff. rewrite (IH Hks). f_equal.
  destruct k; try done; cbn in Hf; by rewrite (Hf i), ?(Hf First).
Qed.
Lemma linear_parts ks fs : Forall2 of_kind ks fs -> forallb is_linear ks = true ->
  map (fun f => f Both) fs = combine (map (fun f => f First) fs) (map (fun f => f Second) fs).
Proof.
  unfold combine. induction 1 as [|k f ks fs Hf _ IH]; cbn; [done|]. intros [Hk Hks]%andb_true_iff. rewrite (IH Hks). f_equal.
  destruct k; try done; cbn in *; [rewrite !Hf; ring|]. rewrite (Hf Both), (Hf Second), Haffine by done. ring.
Qed.
End parts.
