(* ===== verification/WillowTraits.v ===== *)
(** * The generated functions of the Willow arm

    src/include/florid/traits/WillowTraits.hpp, generated by CasADi: the twelve
    functions and their interfaces.  A function of more than 150 lines is split.
    The [alloc_mem], [checkout], [incref] and other such functions do nothing. *)

From stdpp Require Import strings.
From S2P Require Import Prelude Casadi.

#[local] Open Scope string_scope.
#[local] Open Scope list_scope.

Definition casadi_s0 : list Z := [6; 1; 1].
Definition casadi_s1 : list Z := [4; 4; 1].
Definition casadi_s2 : list Z := [6; 6; 1].
Definition casadi_s3 : list Z := [3; 1; 1].

(** ** [casadi_fk]: [casadi_f0] *)

Definition casadi_f0_locals : N := 29.
Definition casadi_f0_1 : list instruction := [
  Arg 0 0 0; Cos 1 0; Arg 2 0 1; Cos 3 2; Mul 4 1 3; Arg 5 0 2; Cos 6 5; Mul 7 4 6; Sin 2 2; Mul 8 1 2; Sin 5 5;
  Mul 9 8 5; Add 7 7 9; Arg 9 0 3; Cos 10 9; Mul 11 7 10; Mul 8 8 6; Mul 12 4 5; Sub 8 8 12; Sin 9 9;
  Mul 12 8 9; Sub 11 11 12; Arg 12 0 4; Cos 13 12; Mul 14 11 13; Sin 0 0; Sin 12 12; Mul 15 0 12; Add 14 14 15;
  Out 0 0 14; Mul 15 0 3; Mul 16 15 6; Mul 17 0 2; Mul 18 17 5; Add 16 16 18; Mul 18 16 10; Mul 17 17 6;
  Mul 19 15 5; Sub 17 17 19; Mul 19 17 9; Sub 18 18 19; Mul 19 18 13; Mul 20 1 12; Sub 19 19 20; Out 0 1 19;
  Mul 20 3 5; Mul 21 2 6; Sub 20 20 21; Mul 21 20 10; Mul 5 2 5; Mul 3 3 6; Add 5 5 3; Mul 3 5 9; Sub 21 21 3;
  Mul 3 21 13; Out 0 2 3; Lit 6 0 0; Out 0 3 6; Mul 22 11 12; Mul 23 0 13; Sub 22 22 23; Arg 23 0 5; Cos 24 23;
  Mul 25 22 24; Mul 26 7 9; Mul 27 8 10; Add 26 26 27; Sin 23 23; Mul 27 26 23; Sub 25 25 27; Out 0 4 25;
  Mul 25 18 12; Mul 13 1 13; Add 25 25 13; Mul 13 25 24; Mul 27 16 9; Mul 28 17 10; Add 27 27 28; Mul 28 27 23;
  Sub 13 13 28; Out 0 5 13; Mul 12 21 12; Mul 13 12 24; Mul 9 20 9; Mul 10 5 10; Add 9 9 10; Mul 10 9 23;
  Sub 13 13 10; Out 0 6 13; Out 0 7 6; Mul 13 22 23; Mul 10 26 24; Add 13 13 10; Out 0 8 13; Mul 13 25 23;
  Mul 10 27 24; Add 13 13 10; Out 0 9 13; Mul 23 12 23; Mul 24 9 24; Add 23 23 24; Out 0 10 23; Out 0 11 6;
  Lit 6 (-28499999999999998) 17; Mul 4 6 4; Lit 23 (-26250000000000002) 19; Mul 24 23 0; Sub 4 4 24;
  Lit 24 24818000000000001 17; Mul 7 24 7; Lit 13 528 4; Mul 8 13 8; Add 7 7 8; Add 4 4 7;
  Lit 7 62758999999999995 18; Mul 11 7 11; Lit 8 41000000000000002 18; Mul 10 8 26; Lit 28 26250000000000002 19;
  Mul 0 28 0; Sub 10 10 0; Add 11 11 10; Add 4 4 11; Lit 11 18848000000000001 17; Mul 14 11 14;
  Lit 10 (-78693) 9; Mul 22 10 22; Lit 0 (-34077999999999997) 18; Mul 26 0 26; Add 22 22 26; Add 14 14 22;
  Add 4 4 14; Out 0 12 4; Mul 15 6 15; Mul 23 23 1; Add 15 15 23; Mul 16 24 16; Mul 17 13 17; Add 16 16 17;
  Add 15 15 16; Mul 18 7 18; Mul 28 28 1; Mul 1 8 27; Add 28 28 1; Add 18 18 28; Add 15 15 18; Mul 19 11 19;
  Mul 25 10 25; Mul 27 0 27].
Definition casadi_f0_2 : list instruction := [
  Add 25 25 27; Add 19 19 25; Add 15 15 19; Out 0 13 15; Lit 15 14324999999999999 17; Mul 6 6 2; Sub 15 15 6;
  Mul 24 24 20; Mul 13 13 5; Add 24 24 13; Add 15 15 24; Mul 7 7 21; Mul 8 8 9; Add 7 7 8; Add 15 15 7;
  Mul 11 11 3; Mul 10 10 12; Mul 0 0 9; Add 10 10 0; Add 11 11 10; Add 15 15 11; Out 0 14 15; Lit 15 1 0;
  Out 0 15 15].
Definition casadi_f0 : casadi_function := {| f_locals := casadi_f0_locals; f_code := 
  casadi_f0_1 ++ casadi_f0_2 |}.
Definition casadi_fk : casadi_function * casadi_interface := (casadi_f0, {|
  f_name_in := ["i0"]; f_name_out := ["o0"]; f_sparsity_in := [casadi_s0]; f_sparsity_out := [casadi_s1];
  f_n_in := 1; f_n_out := 1; f_work := (1, 1, 0, 0)%nat |}).

(** ** [casadi_zero_jacobian]: [casadi_f1] *)

Definition casadi_f1_locals : N := 36.
Definition casadi_f1_1 : list instruction := [
  Lit 0 (-28499999999999998) 17; Arg 1 0 0; Sin 2 1; Arg 3 0 1; Cos 4 3; Mul 5 2 4; Mul 6 0 5;
  Lit 7 (-26250000000000002) 19; Cos 1 1; Mul 8 7 1; Add 6 6 8; Lit 8 24818000000000001 17; Arg 9 0 2; Cos 10 9;
  Mul 11 5 10; Sin 3 3; Mul 12 2 3; Sin 9 9; Mul 13 12 9; Add 11 11 13; Mul 13 8 11; Lit 14 528 4; Mul 12 12 10;
  Mul 5 5 9; Sub 12 12 5; Mul 5 14 12; Add 13 13 5; Add 13 6 13; Lit 5 62758999999999995 18; Arg 15 0 3;
  Cos 16 15; Mul 17 11 16; Sin 15 15; Mul 18 12 15; Sub 17 17 18; Mul 18 5 17; Lit 19 26250000000000002 19;
  Mul 20 19 1; Lit 21 41000000000000002 18; Mul 11 11 15; Mul 12 12 16; Add 11 11 12; Mul 12 21 11;
  Add 20 20 12; Add 18 18 20; Add 18 13 18; Lit 20 18848000000000001 17; Arg 12 0 4; Cos 22 12; Mul 23 17 22;
  Sin 12 12; Mul 24 1 12; Sub 23 23 24; Mul 24 20 23; Lit 25 (-78693) 9; Mul 17 17 12; Mul 26 1 22;
  Add 17 17 26; Mul 17 25 17; Lit 26 (-34077999999999997) 18; Mul 27 26 11; Add 17 17 27; Add 24 24 17;
  Add 24 18 24; Neg 17 24; Out 0 0 17; Lit 17 14324999999999999 17; Mul 27 0 3; Sub 27 17 27; Mul 28 4 9;
  Mul 29 3 10; Sub 28 28 29; Mul 29 8 28; Mul 30 3 9; Mul 31 4 10; Add 30 30 31; Mul 31 14 30; Add 29 29 31;
  Add 29 27 29; Mul 31 28 16; Mul 32 30 15; Sub 31 31 32; Mul 32 5 31; Mul 28 28 15; Mul 30 30 16; Add 28 28 30;
  Mul 30 21 28; Add 32 32 30; Add 32 29 32; Mul 30 31 22; Mul 33 20 30; Mul 31 31 12; Mul 31 25 31;
  Mul 34 26 28; Add 31 31 34; Add 33 33 31; Add 33 32 33; Mul 31 33 1; Mul 34 17 1; Sub 31 31 34; Out 0 1 31;
  Mul 31 27 1; Mul 34 33 1; Sub 31 31 34; Out 0 2 31; Mul 31 33 1; Mul 34 29 1; Sub 31 31 34; Out 0 3 31;
  Mul 31 32 11; Mul 34 18 28; Sub 31 31 34; Mul 34 33 11; Mul 35 24 28; Sub 34 34 35; Sub 31 31 34; Out 0 4 31;
  Mul 31 33 23; Mul 34 24 30; Sub 31 31 34; Mul 34 33 23; Mul 35 24 30; Sub 34 34 35; Sub 31 31 34; Out 0 5 31;
  Mul 4 1 4; Mul 0 0 4; Mul 7 7 2; Sub 0 0 7; Mul 7 4 10; Mul 3 1 3; Mul 31 3 9; Add 7 7 31; Mul 8 8 7;
  Mul 3 3 10; Mul 4 4 9; Sub 3 3 4; Mul 14 14 3; Add 8 8 14; Add 8 0 8; Mul 14 7 16; Mul 4 3 15; Sub 14 14 4;
  Mul 5 5 14; Mul 7 7 15; Mul 3 3 16; Add 7 7 3; Mul 21 21 7; Mul 19 19 2].
Definition casadi_f1_2 : list instruction := [
  Sub 21 21 19; Add 5 5 21; Add 5 8 5; Mul 21 14 22; Mul 19 2 12; Add 21 21 19; Mul 20 20 21; Mul 14 14 12;
  Mul 22 2 22; Sub 14 14 22; Mul 25 25 14; Mul 26 26 7; Add 25 25 26; Add 20 20 25; Add 20 5 20; Out 0 6 20;
  Mul 25 33 2; Mul 17 17 2; Sub 25 25 17; Out 0 7 25; Mul 27 27 2; Mul 25 33 2; Sub 27 27 25; Out 0 8 27;
  Mul 27 33 2; Mul 29 29 2; Sub 27 27 29; Out 0 9 27; Mul 27 5 28; Mul 32 32 7; Sub 27 27 32; Mul 32 20 28;
  Mul 29 33 7; Sub 32 32 29; Sub 27 27 32; Out 0 10 27; Mul 27 20 30; Mul 32 33 21; Sub 27 27 32; Mul 32 20 30;
  Mul 33 33 21; Sub 32 32 33; Sub 27 27 32; Out 0 11 27; Lit 27 0 0; Out 0 12 27; Mul 32 20 1; Mul 33 24 2;
  Add 32 32 33; Neg 32 32; Out 0 13 32; Mul 32 20 1; Mul 33 24 2; Add 32 32 33; Mul 0 0 1; Mul 6 6 2; Add 0 0 6;
  Sub 32 32 0; Out 0 14 32; Mul 8 8 1; Mul 13 13 2; Add 8 8 13; Mul 13 20 1; Mul 32 24 2; Add 13 13 32;
  Sub 8 8 13; Out 0 15 8; Mul 18 18 7; Mul 5 5 11; Sub 18 18 5; Mul 5 24 7; Mul 8 20 11; Sub 5 5 8; Sub 18 18 5;
  Out 0 16 18; Mul 18 24 21; Mul 5 20 23; Sub 18 18 5; Mul 24 24 21; Mul 20 20 23; Sub 24 24 20; Sub 18 18 24;
  Out 0 17 18; Out 0 18 27; Neg 18 2; Out 0 19 18; Out 0 20 2; Out 0 21 18; Neg 7 7; Out 0 22 7; Neg 21 21;
  Out 0 23 21; Out 0 24 27; Out 0 25 1; Neg 21 1; Out 0 26 21; Out 0 27 1; Neg 11 11; Out 0 28 11; Neg 23 23;
  Out 0 29 23; Lit 23 1 0; Out 0 30 23; Out 0 31 27; Out 0 32 27; Out 0 33 27; Neg 28 28; Out 0 34 28;
  Neg 30 30; Out 0 35 30].
Definition casadi_f1 : casadi_function := {| f_locals := casadi_f1_locals; f_code := 
  casadi_f1_1 ++ casadi_f1_2 |}.
Definition casadi_zero_jacobian : casadi_function * casadi_interface := (casadi_f1, {|
  f_name_in := ["i0"]; f_name_out := ["o0"]; f_sparsity_in := [casadi_s0]; f_sparsity_out := [casadi_s2];
  f_n_in := 1; f_n_out := 1; f_work := (1, 1, 0, 0)%nat |}).

(** ** [casadi_body_jacobian]: [casadi_f2] *)

Definition casadi_f2_locals : N := 36.
Definition casadi_f2_1 : list instruction := [
  Arg 0 0 0; Sin 1 0; Arg 2 0 1; Cos 3 2; Mul 4 1 3; Arg 5 0 2; Cos 6 5; Mul 7 4 6; Sin 2 2; Mul 8 1 2; Sin 5 5;
  Mul 9 8 5; Add 7 7 9; Arg 9 0 3; Cos 10 9; Mul 11 7 10; Mul 8 8 6; Mul 12 4 5; Sub 8 8 12; Sin 9 9;
  Mul 12 8 9; Sub 11 11 12; Arg 12 0 4; Cos 13 12; Mul 14 11 13; Cos 0 0; Sin 12 12; Mul 15 0 12; Sub 14 14 15;
  Lit 15 (-28499999999999998) 17; Mul 16 0 3; Mul 17 15 16; Lit 18 (-26250000000000002) 19; Mul 19 18 1;
  Sub 17 17 19; Lit 19 24818000000000001 17; Mul 20 16 6; Mul 21 0 2; Mul 22 21 5; Add 20 20 22; Mul 22 19 20;
  Lit 23 528 4; Mul 21 21 6; Mul 16 16 5; Sub 21 21 16; Mul 16 23 21; Add 22 22 16; Add 22 17 22;
  Lit 16 62758999999999995 18; Mul 24 20 10; Mul 25 21 9; Sub 24 24 25; Mul 25 16 24;
  Lit 26 41000000000000002 18; Mul 20 20 9; Mul 21 21 10; Add 20 20 21; Mul 21 26 20;
  Lit 27 26250000000000002 19; Mul 28 27 1; Sub 21 21 28; Add 25 25 21; Add 25 22 25;
  Lit 21 18848000000000001 17; Mul 28 24 13; Mul 29 1 12; Add 28 28 29; Mul 29 21 28; Lit 30 (-78693) 9;
  Mul 24 24 12; Mul 31 1 13; Sub 24 24 31; Mul 31 30 24; Lit 32 (-34077999999999997) 18; Mul 33 32 20;
  Add 31 31 33; Add 29 29 31; Add 29 25 29; Mul 31 14 29; Mul 4 15 4; Mul 18 18 0; Add 4 4 18; Mul 18 19 7;
  Mul 33 23 8; Add 18 18 33; Add 18 4 18; Mul 33 16 11; Mul 27 27 0; Mul 7 7 9; Mul 8 8 10; Add 7 7 8;
  Mul 8 26 7; Add 27 27 8; Add 33 33 27; Add 33 18 33; Mul 27 21 14; Mul 11 11 12; Mul 8 0 13; Add 11 11 8;
  Mul 8 30 11; Mul 34 32 7; Add 8 8 34; Add 27 27 8; Add 27 33 27; Mul 8 28 27; Sub 31 31 8; Out 0 0 31;
  Lit 31 14324999999999999 17; Mul 15 15 2; Sub 15 31 15; Mul 8 3 5; Mul 34 2 6; Sub 8 8 34; Mul 19 19 8;
  Mul 2 2 5; Mul 3 3 6; Add 2 2 3; Mul 23 23 2; Add 19 19 23; Add 19 15 19; Mul 23 8 10; Mul 3 2 9; Sub 23 23 3;
  Mul 16 16 23; Mul 8 8 9; Mul 2 2 10; Add 8 8 2; Mul 26 26 8; Add 16 16 26; Add 16 19 16; Mul 13 23 13;
  Mul 21 21 13; Mul 23 23 12; Mul 30 30 23; Mul 32 32 8; Add 30 30 32; Add 21 21 30; Add 21 16 21; Mul 30 21 0;
  Mul 32 31 0; Sub 30 30 32; Mul 32 28 30; Mul 12 21 1; Mul 31 31 1; Sub 12 12 31; Mul 31 14 12; Mul 26 29 0;
  Mul 2 27 1; Add 26 26 2].
Definition casadi_f2_2 : list instruction := [
  Mul 2 13 26; Sub 31 31 2; Add 32 32 31; Out 0 1 32; Mul 32 15 0; Mul 31 21 0; Sub 32 32 31; Mul 31 28 32;
  Mul 15 15 1; Mul 2 21 1; Sub 15 15 2; Mul 2 14 15; Mul 10 29 0; Mul 9 27 1; Add 10 10 9; Mul 17 17 0;
  Mul 4 4 1; Add 17 17 4; Sub 10 10 17; Mul 17 13 10; Add 2 2 17; Add 31 31 2; Out 0 2 31; Mul 31 21 0;
  Mul 2 19 0; Sub 31 31 2; Mul 2 28 31; Mul 17 21 1; Mul 19 19 1; Sub 17 17 19; Mul 19 14 17; Mul 22 22 0;
  Mul 18 18 1; Add 22 22 18; Mul 18 29 0; Mul 4 27 1; Add 18 18 4; Sub 22 22 18; Mul 18 13 22; Add 19 19 18;
  Add 2 2 19; Out 0 3 2; Mul 2 16 7; Mul 19 33 8; Sub 2 2 19; Mul 19 21 7; Mul 18 27 8; Sub 19 19 18;
  Sub 2 2 19; Mul 19 28 2; Mul 18 25 8; Mul 16 16 20; Sub 18 18 16; Mul 16 29 8; Mul 4 21 20; Sub 16 16 4;
  Sub 18 18 16; Mul 16 14 18; Mul 33 33 20; Mul 25 25 7; Sub 33 33 25; Mul 25 27 20; Mul 4 29 7; Sub 25 25 4;
  Sub 33 33 25; Mul 25 13 33; Add 16 16 25; Add 19 19 16; Out 0 4 19; Mul 19 21 14; Mul 16 27 13; Sub 19 19 16;
  Mul 16 21 14; Mul 25 27 13; Sub 16 16 25; Sub 19 19 16; Mul 16 28 19; Mul 25 29 13; Mul 4 21 28; Sub 25 25 4;
  Mul 4 29 13; Mul 21 21 28; Sub 4 4 21; Sub 25 25 4; Mul 4 14 25; Mul 21 27 28; Mul 9 29 14; Sub 21 21 9;
  Mul 9 27 28; Mul 3 29 14; Sub 9 9 3; Sub 21 21 9; Mul 9 13 21; Add 4 4 9; Add 16 16 4; Out 0 5 16; Arg 16 0 5;
  Cos 4 16; Mul 9 11 4; Sin 16 16; Mul 3 7 16; Sub 9 9 3; Mul 3 9 29; Mul 6 24 4; Mul 5 20 16; Sub 6 6 5;
  Mul 5 6 27; Sub 3 3 5; Out 0 6 3; Mul 3 6 30; Mul 5 9 12; Mul 34 23 4; Mul 35 8 16; Sub 34 34 35;
  Mul 35 34 26; Sub 5 5 35; Add 3 3 5; Out 0 7 3; Mul 3 6 32; Mul 5 9 15; Mul 35 34 10; Add 5 5 35; Add 3 3 5;
  Out 0 8 3; Mul 3 6 31; Mul 5 9 17; Mul 35 34 22; Add 5 5 35; Add 3 3 5; Out 0 9 3; Mul 3 6 2; Mul 5 9 18;
  Mul 35 34 33; Add 5 5 35; Add 3 3 5; Out 0 10 3; Mul 3 6 19; Mul 5 9 25; Mul 35 34 21; Add 5 5 35; Add 3 3 5;
  Out 0 11 3; Mul 11 11 16; Mul 3 7 4; Add 11 11 3; Mul 29 11 29; Mul 24 24 16; Mul 3 20 4; Add 24 24 3].
Definition casadi_f2_3 : list instruction := [
  Mul 27 24 27; Sub 29 29 27; Out 0 12 29; Mul 30 24 30; Mul 12 11 12; Mul 23 23 16; Mul 4 8 4; Add 23 23 4;
  Mul 26 23 26; Sub 12 12 26; Add 30 30 12; Out 0 13 30; Mul 32 24 32; Mul 15 11 15; Mul 10 23 10; Add 15 15 10;
  Add 32 32 15; Out 0 14 32; Mul 31 24 31; Mul 17 11 17; Mul 22 23 22; Add 17 17 22; Add 31 31 17; Out 0 15 31;
  Mul 2 24 2; Mul 18 11 18; Mul 33 23 33; Add 18 18 33; Add 2 2 18; Out 0 16 2; Mul 19 24 19; Mul 25 11 25;
  Mul 21 23 21; Add 25 25 21; Add 19 19 25; Out 0 17 19; Out 0 18 13; Mul 19 14 0; Mul 25 28 1; Sub 19 19 25;
  Out 0 19 19; Mul 19 28 1; Mul 25 14 0; Sub 19 19 25; Out 0 20 19; Mul 19 14 0; Mul 25 28 1; Sub 19 19 25;
  Out 0 21 19; Mul 19 28 20; Mul 25 14 7; Mul 21 13 8; Add 25 25 21; Add 19 19 25; Neg 19 19; Out 0 22 19;
  Sq 19 28; Sq 25 14; Sq 21 13; Add 25 25 21; Add 19 19 25; Neg 19 19; Out 0 23 19; Out 0 24 34; Mul 19 9 0;
  Mul 25 6 1; Sub 19 19 25; Out 0 25 19; Mul 19 6 1; Mul 25 9 0; Sub 19 19 25; Out 0 26 19; Mul 19 9 0;
  Mul 25 6 1; Sub 19 19 25; Out 0 27 19; Mul 19 6 20; Mul 25 9 7; Mul 21 34 8; Add 25 25 21; Add 19 19 25;
  Neg 19 19; Out 0 28 19; Mul 6 6 28; Mul 9 9 14; Mul 34 34 13; Add 9 9 34; Add 6 6 9; Neg 6 6; Out 0 29 6;
  Out 0 30 23; Mul 6 11 0; Mul 9 24 1; Sub 6 6 9; Out 0 31 6; Mul 6 24 1; Mul 9 11 0; Sub 6 6 9; Out 0 32 6;
  Mul 0 11 0; Mul 1 24 1; Sub 0 0 1; Out 0 33 0; Mul 20 24 20; Mul 7 11 7; Mul 8 23 8; Add 7 7 8; Add 20 20 7;
  Neg 20 20; Out 0 34 20; Mul 24 24 28; Mul 11 11 14; Mul 23 23 13; Add 11 11 23; Add 24 24 11; Neg 24 24;
  Out 0 35 24].
Definition casadi_f2 : casadi_function := {| f_locals := casadi_f2_locals; f_code := 
  casadi_f2_1 ++ casadi_f2_2 ++ casadi_f2_3 |}.
Definition casadi_body_jacobian : casadi_function * casadi_interface := (casadi_f2, {|
  f_name_in := ["i0"]; f_name_out := ["o0"]; f_sparsity_in := [casadi_s0]; f_sparsity_out := [casadi_s2];
  f_n_in := 1; f_n_out := 1; f_work := (1, 1, 0, 0)%nat |}).

(** ** [casadi_mass]: [casadi_f3] *)

Definition casadi_f3_locals : N := 64.
Definition casadi_f3_1 : list instruction := [
  Lit 0 3009 7; Lit 1 81022799999999999 19; Arg 2 0 2; Sin 3 2; Lit 4 14680600000000002 19;
  Lit 5 57735000000000002 20; Lit 6 17809999999999999 20; Lit 7 (-80407999999999999) 20;
  Lit 8 (-63539999999999951) 21; Arg 9 0 5; Cos 10 9; Mul 11 8 10; Lit 12 82379999999999994 21; Sin 9 9;
  Mul 13 12 9; Add 11 11 13; Mul 11 11 10; Sub 7 7 11; Mul 12 12 10; Mul 8 8 9; Sub 12 12 8; Mul 8 12 9;
  Add 7 7 8; Lit 13 130247 8; Add 7 7 13; Add 6 6 7; Lit 7 25552041058139319 17; Lit 14 (-49119999999999984) 21;
  Lit 15 (-78693) 9; Lit 16 96069999999999993 21; Mul 17 16 10; Lit 18 (-19297299999999999) 19; Mul 19 18 9;
  Add 17 17 19; Add 17 15 17; Sub 14 14 17; Sq 19 14; Lit 20 (-31543689999999985) 18;
  Lit 21 (-34077999999999997) 18; Mul 18 18 10; Mul 16 16 9; Sub 18 18 16; Add 18 21 18; Sub 20 20 18; Sq 16 20;
  Add 19 19 16; Mul 19 7 19; Add 6 6 19; Lit 19 15129 8; Sub 8 13 8; Add 19 19 8; Lit 8 81326650660641028 19;
  Sq 16 14; Add 16 8 16; Mul 16 7 16; Add 19 19 16; Sub 6 6 19; Lit 16 17626 8; Add 11 11 13; Add 16 16 11;
  Sq 11 20; Add 8 8 11; Mul 8 7 8; Add 16 16 8; Sub 16 16 19; Add 8 6 16; Arg 11 0 4; Cos 13 11; Mul 16 13 16;
  Sin 11 11; Lit 22 19000000000000001 23; Lit 23 61999999999999999 23; Mul 24 23 10;
  Lit 25 (-69999999999999997) 23; Mul 26 25 9; Add 24 24 26; Lit 26 (-34999999999999998) 23; Mul 27 26 9;
  Sub 24 24 27; Add 22 22 24; Lit 24 (-23043160247559692) 18; Mul 27 24 14; Sub 22 22 27; Mul 27 11 22;
  Sub 16 16 27; Mul 27 16 13; Mul 22 13 22; Mul 6 11 6; Sub 22 22 6; Mul 6 22 11; Sub 27 27 6; Sub 8 8 27;
  Add 8 8 19; Add 5 5 8; Lit 8 33804363298149098 17; Lit 6 104537160417653 17; Lit 28 26250000000000002 19;
  Lit 29 (-15587418131885522) 21; Lit 30 68266656897627187 17; Mul 17 30 17; Add 29 29 17; Mul 17 13 29;
  Lit 31 65105751830154185 18; Mul 32 31 11; Sub 17 17 32; Add 17 28 17; Sub 6 6 17; Sq 32 6;
  Lit 33 37000000394383802 18; Lit 34 41000000000000002 18; Lit 35 (-10009867374848859) 18; Mul 30 30 18;
  Add 35 35 30; Add 30 34 35; Sub 33 33 30; Sq 18 33; Add 32 32 18; Mul 32 8 32; Add 5 5 32;
  Lit 32 61516000000000001 20; Add 32 32 19; Lit 18 35766769331050302 18; Lit 36 62758999999999995 18;
  Mul 31 31 13; Mul 37 11 29; Add 31 31 37; Add 31 36 31; Sub 18 18 31; Sq 37 18; Sq 38 6; Add 37 37 38;
  Mul 37 8 37; Add 32 32 37; Sub 5 5 32; Arg 37 0 3; Cos 38 37; Lit 39 2 0; Lit 40 (-27386000000000001) 20;
  Lit 41 35999999999999998 22; Mul 25 25 10; Mul 23 23 9; Sub 25 25 23; Mul 26 26 10; Sub 25 25 26;
  Add 41 41 25; Mul 24 24 20; Sub 41 41 24; Mul 24 39 41; Mul 25 24 13].
Definition casadi_f3_2 : list instruction := [
  Mul 12 12 10; Lit 26 (-41189999999999997) 21; Add 12 12 26; Mul 7 7 14; Mul 7 7 20; Sub 12 12 7; Add 7 12 12;
  Mul 20 7 11; Add 25 25 20; Mul 20 11 12; Mul 14 13 41; Add 20 20 14; Sub 25 25 20; Add 40 40 25; Mul 25 8 18;
  Mul 25 25 33; Sub 40 40 25; Mul 25 39 40; Mul 25 38 25; Sin 37 37; Mul 20 37 5; Sub 25 25 20; Mul 20 25 37;
  Add 5 5 20; Add 5 5 32; Add 4 4 5; Lit 5 68880865220038789 17; Lit 14 40138699999999984 19;
  Lit 26 29960035638188816 20; Lit 23 71340300885837415 17; Mul 17 23 17; Add 26 26 17; Sub 14 14 26; Sq 17 14;
  Lit 42 32500479999999984 18; Lit 43 528 4; Lit 44 10604088785269368 18; Mul 30 23 30; Add 44 44 30;
  Mul 30 38 44; Lit 45 10250648473135598 18; Mul 23 23 31; Add 45 45 23; Mul 23 37 45; Sub 30 30 23;
  Add 30 43 30; Sub 42 42 30; Sq 23 42; Add 17 17 23; Mul 17 5 17; Add 4 4 17; Lit 17 1444279 8; Sub 32 32 20;
  Add 17 17 32; Lit 32 11056122999999997 17; Lit 20 24818000000000001 17; Mul 23 38 45; Mul 31 37 44;
  Add 23 23 31; Add 23 20 23; Sub 32 32 23; Sq 31 32; Sq 46 14; Add 31 31 46; Mul 31 5 31; Add 17 17 31;
  Sub 4 4 17; Mul 31 3 4; Cos 2 2; Lit 46 (-26343899999999999) 19; Mul 25 25 38; Sub 25 25 40; Add 46 46 25;
  Mul 25 5 32; Mul 25 25 42; Sub 46 46 25; Mul 25 39 46; Mul 25 2 25; Add 31 31 25; Mul 25 31 3; Add 40 25 17;
  Add 1 1 40; Lit 40 60931733999408122 17; Lit 47 (-14104253) 8; Lit 48 (-28499999999999998) 17;
  Lit 49 46061201062284104 18; Lit 50 58338740386404775 17; Mul 23 50 23; Add 49 49 23; Mul 23 2 49;
  Lit 51 13540109348464583 18; Mul 30 50 30; Add 51 51 30; Mul 30 3 51; Sub 23 23 30; Add 23 48 23;
  Sub 47 47 23; Sq 30 47; Lit 52 (-48229800000000001) 19; Lit 53 (-26250000000000002) 19;
  Lit 54 16722288012522134 19; Mul 50 50 26; Add 54 54 50; Add 50 53 54; Sub 52 52 50; Sq 55 52; Add 30 30 55;
  Mul 30 40 30; Add 1 1 30; Arg 30 0 1; Cos 55 30; Lit 56 (-79999999999999996) 23; Mul 31 31 2; Sub 31 31 46;
  Add 56 56 31; Mul 31 40 47; Mul 46 3 49; Mul 57 2 51; Add 46 46 57; Mul 31 31 46; Add 56 56 31; Mul 39 39 56;
  Mul 39 55 39; Sin 30 30; Lit 56 10185399999999992 19; Sub 4 4 25; Add 4 4 17; Add 56 56 4; Sq 4 52; Sq 17 46;
  Add 4 4 17; Mul 4 40 4; Add 56 56 4; Sub 56 56 1; Mul 56 30 56; Sub 39 39 56; Mul 39 39 30; Sub 1 1 39;
  Add 0 0 1; Lit 1 46553910740168264 17; Lit 39 (-56369999999999997) 21; Lit 56 (-30323859648594256) 18;
  Lit 4 78500201571402428 17; Mul 23 4 23; Add 56 56 23; Mul 23 55 56; Mul 17 4 46; Mul 25 30 17; Add 23 23 25].
Definition casadi_f3_3 : list instruction := [
  Sub 39 39 23; Sq 39 39; Lit 25 14535500000000001 19; Lit 31 (-10369309782515752) 19; Mul 4 4 50; Add 31 31 4;
  Sub 25 25 31; Sq 25 25; Add 39 39 25; Mul 1 1 39; Add 0 0 1; Lit 1 41447158900000005 16;
  Lit 39 (-72688520114221854) 22; Lit 25 87105105532336013 17; Mul 23 25 23; Add 39 39 23; Sq 39 39;
  Lit 23 1874337385347298 19; Mul 25 25 31; Add 23 23 25; Sq 23 23; Add 39 39 23; Mul 1 1 39; Add 0 0 1;
  Out 0 0 0; Lit 0 (-38199999999999998) 22; Lit 1 (-23999999999999999) 22; Mul 22 22 13; Mul 16 16 11;
  Add 22 22 16; Add 1 1 22; Mul 22 8 18; Mul 22 22 6; Sub 1 1 22; Mul 22 1 38; Lit 16 (-34199999999999999) 22;
  Mul 7 7 13; Mul 24 24 11; Sub 7 7 24; Mul 24 11 41; Mul 39 13 12; Sub 24 24 39; Add 7 7 24; Add 16 16 7;
  Mul 6 8 6; Mul 6 6 33; Sub 16 16 6; Mul 6 37 16; Add 22 22 6; Add 0 0 22; Mul 22 5 32; Mul 22 22 14;
  Sub 0 0 22; Mul 22 3 0; Lit 6 14589999999999999 21; Add 7 16 16; Mul 7 38 7; Mul 24 37 1; Sub 7 7 24;
  Mul 24 38 16; Sub 7 7 24; Add 6 6 7; Mul 14 5 14; Mul 14 14 42; Sub 6 6 14; Add 14 6 6; Mul 14 2 14;
  Add 22 22 14; Mul 14 2 6; Sub 22 22 14; Mul 14 40 52; Mul 14 14 46; Add 22 22 14; Lit 14 36102591500000001 16;
  Mul 7 14 31; Mul 7 7 17; Sub 22 22 7; Mul 22 55 22; Lit 7 (-16860000000000001) 21; Mul 24 0 2; Mul 39 3 6;
  Sub 24 24 39; Add 7 7 24; Mul 24 40 47; Mul 24 24 52; Sub 7 7 24; Mul 24 14 56; Mul 24 24 31; Sub 7 7 24;
  Mul 7 30 7; Sub 22 22 7; Out 0 1 22; Lit 7 (-28340607100000001) 16; Mul 24 7 51; Mul 31 54 24; Add 6 6 31;
  Mul 31 3 6; Mul 7 7 49; Mul 54 54 7; Add 0 0 54; Mul 54 2 0; Sub 31 31 54; Mul 54 3 24; Mul 52 2 7;
  Sub 54 54 52; Mul 52 53 54; Add 31 31 52; Mul 31 30 31; Mul 0 3 0; Mul 6 2 6; Add 0 0 6; Mul 6 2 24;
  Mul 52 3 7; Add 6 6 52; Mul 6 53 6; Add 0 0 6; Mul 0 55 0; Add 31 31 0; Neg 31 31; Out 0 2 31;
  Lit 0 165335532 8; Mul 6 0 45; Mul 6 6 26; Sub 1 1 6; Mul 6 38 1; Mul 26 0 26; Mul 26 26 44; Sub 16 16 26;
  Mul 26 37 16; Add 6 6 26; Mul 26 3 6; Mul 16 38 16; Mul 1 37 1; Sub 16 16 1; Mul 1 2 16; Add 26 26 1;
  Mul 1 0 44; Mul 52 38 1; Lit 39 (-165335532) 8; Mul 39 39 45; Mul 23 37 39; Add 52 52 23; Mul 23 2 52;
  Mul 39 38 39; Mul 1 37 1; Sub 39 39 1; Mul 1 3 39; Sub 23 23 1; Mul 23 53 23].
Definition casadi_f3_4 : list instruction := [
  Sub 26 26 23; Mul 26 55 26; Mul 6 2 6; Mul 16 3 16; Sub 6 6 16; Mul 16 3 52; Mul 23 2 39; Add 16 16 23;
  Mul 23 53 16; Add 6 6 23; Mul 6 30 6; Sub 26 26 6; Out 0 3 26; Lit 6 (-49996528554077319) 19;
  Lit 23 (-117950866) 8; Mul 23 23 29; Mul 29 29 23; Add 6 6 29; Sub 6 6 19; Mul 29 11 23;
  Lit 1 (-76792798099477713) 18; Mul 25 1 13; Add 29 29 25; Mul 25 36 29; Mul 4 1 11; Mul 50 13 23; Sub 4 4 50;
  Mul 50 28 4; Sub 25 25 50; Add 25 6 25; Mul 50 37 25; Mul 1 1 35; Add 41 41 1; Mul 1 13 41; Mul 35 35 23;
  Add 12 12 35; Mul 35 11 12; Add 1 1 35; Mul 35 34 29; Add 1 1 35; Mul 35 38 1; Sub 50 50 35; Mul 35 43 29;
  Sub 50 50 35; Mul 35 3 50; Mul 1 37 1; Mul 25 38 25; Add 1 1 25; Mul 25 20 29; Add 1 1 25; Mul 25 2 1;
  Add 35 35 25; Mul 29 48 29; Mul 25 38 4; Mul 23 2 25; Mul 57 37 4; Mul 58 3 57; Add 23 23 58; Mul 23 53 23;
  Sub 29 29 23; Add 35 35 29; Mul 35 55 35; Mul 50 2 50; Mul 1 3 1; Sub 50 50 1; Mul 1 3 25; Mul 29 2 57;
  Sub 1 1 29; Mul 29 53 1; Add 50 50 29; Mul 50 30 50; Sub 35 35 50; Out 0 4 35; Lit 50 (-56493592345755437) 20;
  Lit 29 (-77356633259099993) 21; Mul 23 29 10; Lit 58 (-15538400738948999) 19; Mul 59 58 9; Sub 23 23 59;
  Mul 15 15 23; Mul 58 58 10; Mul 29 29 9; Add 58 58 29; Mul 21 21 58; Sub 15 15 21; Add 50 50 15; Mul 15 13 50;
  Lit 21 (-79500600643088921) 22; Mul 29 21 10; Lit 59 1475867732684376 19; Mul 60 59 9; Add 29 29 60;
  Lit 60 18848000000000001 17; Mul 61 60 23; Sub 29 29 61; Mul 61 11 29; Add 15 15 61; Mul 61 28 23;
  Mul 62 13 58; Mul 63 34 62; Sub 61 61 63; Add 15 15 61; Mul 61 38 15; Mul 59 59 10; Mul 21 21 9; Sub 59 59 21;
  Mul 60 60 58; Add 59 59 60; Mul 60 36 62; Mul 58 11 58; Mul 28 28 58; Sub 60 60 28; Add 60 59 60;
  Mul 28 37 60; Add 61 61 28; Mul 28 43 62; Sub 61 61 28; Mul 28 3 61; Mul 60 38 60; Mul 15 37 15; Sub 60 60 15;
  Mul 15 20 62; Add 60 60 15; Mul 15 2 60; Add 28 28 15; Mul 62 48 62; Mul 15 38 58; Mul 21 37 23; Add 15 15 21;
  Mul 21 2 15; Mul 38 38 23; Mul 37 37 58; Sub 38 38 37; Mul 37 3 38; Sub 21 21 37; Mul 21 53 21; Sub 62 62 21;
  Add 28 28 62; Mul 55 55 28; Mul 61 2 61; Mul 60 3 60; Sub 61 61 60; Mul 3 3 15; Mul 2 2 38; Add 3 3 2;
  Mul 53 53 3; Add 61 61 53; Mul 30 30 61; Sub 55 55 30].
Definition casadi_f3_5 : list instruction := [
  Out 0 5 55; Out 0 6 22; Lit 22 73415599999999996 19; Lit 30 1494858 8; Lit 61 71027000000000004 20;
  Add 27 27 19; Add 61 61 27; Sq 18 18; Sq 33 33; Add 18 18 33; Mul 8 8 18; Add 61 61 8; Add 30 30 61; Sq 32 32;
  Sq 42 42; Add 32 32 42; Mul 5 5 32; Add 30 30 5; Add 22 22 30; Sq 47 47; Sq 46 46; Add 47 47 46; Mul 40 40 47;
  Add 22 22 40; Sq 56 56; Sq 17 17; Add 56 56 17; Mul 14 14 56; Add 22 22 14; Out 0 7 22; Mul 51 51 24;
  Mul 49 49 7; Add 51 51 49; Sub 51 51 30; Mul 54 48 54; Sub 54 51 54; Out 0 8 54; Sq 45 45; Sq 44 44;
  Add 45 45 44; Mul 0 0 45; Add 61 61 0; Mul 52 43 52; Mul 39 20 39; Sub 52 52 39; Add 52 61 52; Mul 16 48 16;
  Sub 16 52 16; Out 0 9 16; Mul 41 11 41; Mul 12 13 12; Sub 41 41 12; Mul 4 34 4; Add 41 41 4; Mul 25 43 25;
  Mul 57 20 57; Add 25 25 57; Add 25 41 25; Mul 1 48 1; Sub 1 25 1; Out 0 10 1; Mul 13 13 29; Mul 11 11 50;
  Sub 13 13 11; Mul 34 34 58; Mul 36 36 23; Sub 34 34 36; Add 13 13 34; Mul 43 43 15; Mul 20 20 38;
  Sub 43 43 20; Add 43 13 43; Mul 48 48 3; Sub 48 43 48; Out 0 11 48; Out 0 12 31; Out 0 13 54; Neg 51 51;
  Out 0 14 51; Neg 52 52; Out 0 15 52; Neg 25 25; Out 0 16 25; Neg 43 43; Out 0 17 43; Out 0 18 26; Out 0 19 16;
  Out 0 20 52; Out 0 21 61; Out 0 22 41; Out 0 23 13; Out 0 24 35; Out 0 25 1; Out 0 26 25; Out 0 27 41;
  Neg 6 6; Out 0 28 6; Neg 59 59; Out 0 29 59; Out 0 30 55; Out 0 31 48; Out 0 32 43; Out 0 33 13; Out 0 34 59;
  Lit 59 56493592345755437 20; Out 0 35 59].
Definition casadi_f3 : casadi_function := {| f_locals := casadi_f3_locals; f_code := 
  casadi_f3_1 ++ casadi_f3_2 ++ casadi_f3_3 ++ casadi_f3_4 ++ casadi_f3_5 |}.
Definition casadi_mass : casadi_function * casadi_interface := (casadi_f3, {|
  f_name_in := ["i0"]; f_name_out := ["o0"]; f_sparsity_in := [casadi_s0]; f_sparsity_out := [casadi_s2];
  f_n_in := 1; f_n_out := 1; f_work := (1, 1, 0, 0)%nat |}).

(** ** [casadi_coriolis]: [casadi_f4] *)

Definition casadi_f4_locals : N := 335.
Definition casadi_f4_1 : list instruction := [
  Lit 0 77619844000000005 17; Lit 1 5 1; Lit 2 14324999999999999 17; Arg 3 0 0; Cos 4 3; Arg 5 0 1; Sin 6 5;
  Mul 7 4 6; Cos 5 5; Arg 8 1 0; Mul 9 5 8; Mul 10 7 9; Sin 3 3; Arg 11 1 1; Mul 12 3 11; Sub 10 10 12;
  Mul 12 4 5; Mul 13 6 8; Mul 14 12 13; Sub 10 10 14; Mul 14 2 10; Mul 15 1 14; Mul 15 0 15;
  Lit 16 (-14104253) 8; Mul 17 3 5; Mul 18 16 17; Lit 19 (-48229800000000001) 19; Mul 20 19 4; Add 18 18 20;
  Mul 20 15 18; Mul 21 4 11; Mul 22 3 6; Mul 23 22 9; Add 21 21 23; Mul 23 17 13; Sub 21 21 23; Mul 23 2 21;
  Mul 24 1 23; Mul 24 0 24; Mul 25 16 12; Mul 19 19 3; Sub 25 25 19; Mul 19 24 25; Sub 19 20 19; Mul 26 18 15;
  Mul 27 25 24; Sub 27 26 27; Add 28 19 27; Lit 29 (-15999999999999999) 22; Mul 30 29 5;
  Lit 31 (-70837400000000007) 19; Mul 32 31 6; Sub 30 30 32; Mul 32 30 12; Lit 33 (-16860000000000001) 21;
  Mul 34 33 6; Mul 35 34 3; Add 32 32 35; Lit 35 (-79999999999999996) 23; Mul 36 35 4; Sub 32 32 36;
  Mul 36 0 25; Mul 16 16 6; Sub 16 2 16; Mul 36 36 16; Sub 36 32 36; Mul 37 1 21; Mul 38 36 37; Mul 39 30 17;
  Mul 34 34 4; Sub 39 39 34; Mul 35 35 3; Sub 39 39 35; Mul 35 0 18; Mul 35 35 16; Sub 35 39 35; Mul 34 1 10;
  Mul 40 35 34; Sub 38 38 40; Sub 28 28 38; Mul 38 34 35; Mul 40 37 36; Sub 38 38 40; Add 28 28 38;
  Lit 38 118070539 8; Lit 40 (-28499999999999998) 17; Mul 41 40 9; Mul 42 4 41; Arg 43 0 2; Cos 44 43;
  Mul 45 22 44; Sin 43 43; Mul 46 17 43; Sub 45 45 46; Lit 46 (-26250000000000002) 19; Mul 47 46 9;
  Mul 48 43 47; Mul 49 40 11; Mul 50 46 13; Add 49 49 50; Mul 50 44 49; Sub 48 48 50; Mul 50 45 48;
  Add 42 42 50; Mul 50 17 44; Mul 51 22 43; Add 50 50 51; Mul 47 44 47; Mul 49 43 49; Add 47 47 49;
  Mul 49 50 47; Sub 42 42 49; Mul 49 40 6; Sub 49 2 49; Mul 51 12 44; Mul 52 7 43; Add 51 51 52; Mul 52 43 9;
  Mul 53 44 13; Sub 52 52 53; Mul 53 51 52; Mul 7 7 44; Mul 54 12 43; Sub 7 7 54; Mul 54 43 13; Mul 55 44 9;
  Add 54 54 55; Mul 55 7 54; Arg 56 1 2; Sub 57 11 56; Mul 58 3 57; Sub 55 55 58; Add 53 53 55; Mul 55 49 53;
  Mul 58 40 12; Mul 59 46 3; Sub 58 58 59; Mul 59 5 43; Mul 60 6 44; Sub 59 59 60; Mul 60 59 52; Mul 43 6 43;
  Mul 44 5 44; Add 43 43 44; Mul 44 43 54; Add 60 60 44; Mul 44 58 60; Sub 55 55 44; Add 42 42 55].
Definition casadi_f4_2 : list instruction := [
  Mul 55 1 42; Mul 55 38 55; Mul 40 40 17; Mul 46 46 4; Add 40 40 46; Lit 46 11056122999999997 17; Mul 44 46 50;
  Lit 61 40138699999999984 19; Mul 62 61 4; Lit 63 32500479999999984 18; Mul 64 63 45; Add 62 62 64;
  Add 44 44 62; Add 44 40 44; Mul 62 55 44; Mul 64 7 48; Mul 65 3 41; Sub 64 64 65; Mul 65 51 47; Sub 64 64 65;
  Mul 65 40 60; Mul 66 50 52; Mul 67 4 57; Mul 68 45 54; Add 67 67 68; Add 66 66 67; Mul 67 49 66; Sub 65 65 67;
  Add 64 64 65; Mul 65 1 64; Mul 65 38 65; Mul 67 46 51; Mul 68 63 7; Mul 61 61 3; Sub 68 68 61; Add 67 67 68;
  Add 67 58 67; Mul 68 65 67; Add 62 62 68; Mul 68 44 55; Mul 61 67 65; Add 68 68 61; Add 61 62 68;
  Lit 69 (-1297473) 8; Mul 70 69 59; Lit 71 (-52687799999999998) 19; Mul 72 71 43; Add 70 70 72; Mul 72 70 51;
  Lit 73 (-38199999999999998) 22; Mul 74 73 59; Lit 75 29179999999999998 21; Mul 76 75 43; Add 74 74 76;
  Mul 76 74 3; Sub 72 72 76; Lit 76 (-26343899999999999) 19; Mul 77 76 4; Lit 78 14589999999999999 21;
  Mul 79 78 50; Sub 77 77 79; Sub 72 72 77; Mul 77 38 67; Mul 46 46 59; Mul 63 63 43; Add 46 46 63;
  Add 46 49 46; Mul 77 77 46; Sub 77 72 77; Mul 63 1 66; Mul 79 77 63; Mul 80 70 50; Mul 74 74 4; Add 80 80 74;
  Mul 74 78 51; Mul 76 76 3; Add 74 74 76; Sub 80 80 74; Mul 74 38 44; Mul 74 74 46; Sub 74 80 74; Mul 76 1 53;
  Mul 81 74 76; Sub 79 79 81; Sub 61 61 79; Mul 79 76 74; Mul 81 63 77; Sub 79 79 81; Add 61 61 79;
  Lit 79 47384665999999998 17; Arg 81 0 3; Cos 82 81; Mul 83 50 82; Sin 81 81; Mul 84 45 81; Sub 83 83 84;
  Lit 84 528 4; Mul 85 84 57; Sub 85 85 47; Mul 86 82 85; Lit 87 24818000000000001 17; Mul 88 87 57;
  Sub 88 48 88; Mul 89 81 88; Sub 86 86 89; Mul 89 83 86; Mul 90 84 52; Mul 91 87 54; Sub 90 90 91;
  Sub 41 41 90; Mul 90 4 41; Mul 91 50 81; Mul 92 45 82; Add 91 91 92; Mul 85 81 85; Mul 88 82 88; Add 85 85 88;
  Mul 88 91 85; Add 90 90 88; Add 89 89 90; Mul 90 87 59; Mul 88 84 43; Add 90 90 88; Add 90 49 90;
  Mul 88 51 82; Mul 92 7 81; Sub 88 88 92; Mul 92 82 52; Mul 93 81 54; Sub 92 92 93; Mul 93 88 92; Mul 94 51 81;
  Mul 95 7 82; Add 94 94 95; Mul 52 81 52; Mul 54 82 54; Add 52 52 54; Mul 54 94 52; Arg 95 1 3; Add 57 95 57;
  Mul 96 3 57; Sub 54 54 96; Add 93 93 54; Mul 54 90 93; Mul 96 87 51; Mul 7 84 7; Add 96 96 7; Add 96 58 96;
  Mul 7 59 82].
Definition casadi_f4_3 : list instruction := [
  Mul 97 43 81; Sub 7 7 97; Mul 97 7 92; Mul 81 59 81; Mul 82 43 82; Add 81 81 82; Mul 82 81 52; Add 97 97 82;
  Mul 82 96 97; Sub 54 54 82; Add 89 89 54; Mul 54 1 89; Mul 54 79 54; Mul 87 87 50; Mul 84 84 45; Add 87 87 84;
  Add 87 40 87; Lit 84 35766769331050302 18; Mul 82 84 83; Lit 98 104537160417653 17; Mul 99 98 4;
  Lit 100 37000000394383802 18; Mul 101 100 91; Add 99 99 101; Add 82 82 99; Add 82 87 82; Mul 99 54 82;
  Mul 101 88 86; Mul 102 94 85; Mul 103 3 41; Sub 102 102 103; Add 101 101 102; Mul 102 87 97; Mul 103 83 92;
  Mul 104 4 57; Mul 105 91 52; Add 104 104 105; Add 103 103 104; Mul 104 90 103; Sub 102 102 104;
  Add 101 101 102; Mul 102 1 101; Mul 102 79 102; Mul 104 84 88; Mul 105 100 94; Mul 98 98 3; Sub 105 105 98;
  Add 104 104 105; Add 104 96 104; Mul 105 102 104; Add 99 99 105; Mul 105 82 54; Mul 98 104 102;
  Add 105 105 98; Add 98 99 105; Lit 106 (-37809999999999992) 21; Mul 107 106 7;
  Lit 108 (-54772000000000002) 20; Mul 109 108 81; Add 107 107 109; Mul 109 107 88;
  Lit 110 (-23999999999999999) 22; Mul 111 110 7; Lit 112 (-68399999999999997) 22; Mul 113 112 81;
  Add 111 111 113; Mul 113 111 3; Sub 109 109 113; Lit 113 (-27386000000000001) 20; Mul 114 113 4;
  Lit 115 (-34199999999999999) 22; Mul 116 115 83; Sub 114 114 116; Sub 109 109 114; Mul 114 79 104;
  Mul 84 84 7; Mul 100 100 81; Add 84 84 100; Add 84 90 84; Mul 114 114 84; Sub 114 109 114; Mul 100 1 103;
  Mul 116 114 100; Mul 117 107 83; Mul 111 111 4; Add 117 117 111; Mul 111 115 88; Mul 113 113 3;
  Add 111 111 113; Sub 117 117 111; Mul 111 79 82; Mul 111 111 84; Sub 111 117 111; Mul 113 1 93;
  Mul 118 111 113; Sub 116 116 118; Sub 98 98 116; Mul 116 113 111; Mul 118 100 114; Sub 116 116 118;
  Add 98 98 116; Lit 116 37429752999999999 17; Arg 118 0 4; Cos 119 118; Mul 120 83 119; Sin 118 118;
  Mul 121 4 118; Sub 120 120 121; Lit 121 26250000000000002 19; Mul 122 121 52; Lit 123 41000000000000002 18;
  Mul 124 123 57; Sub 122 122 124; Sub 122 86 122; Mul 124 119 122; Mul 125 123 92;
  Lit 126 62758999999999995 18; Mul 127 126 52; Sub 125 125 127; Sub 41 41 125; Mul 125 118 41; Sub 124 124 125;
  Mul 125 120 124; Mul 127 83 118; Mul 128 4 119; Add 127 127 128; Mul 122 118 122; Mul 41 119 41;
  Add 122 122 41; Mul 41 127 122; Mul 128 126 57; Mul 129 121 92; Sub 128 128 129; Sub 128 85 128;
  Mul 129 91 128; Add 41 41 129; Add 125 125 41; Mul 41 126 7; Mul 129 123 81; Add 41 41 129; Add 41 90 41;
  Mul 129 88 119; Mul 130 3 118; Add 129 129 130; Mul 130 119 92; Mul 131 118 57; Sub 130 130 131;
  Mul 131 129 130; Mul 132 88 118].
Definition casadi_f4_4 : list instruction := [
  Mul 133 3 119; Sub 132 132 133; Mul 92 118 92; Mul 57 119 57; Add 92 92 57; Mul 57 132 92; Arg 133 1 4;
  Sub 52 52 133; Mul 134 94 52; Add 57 57 134; Add 131 131 57; Mul 57 41 131; Mul 134 126 88; Mul 135 123 94;
  Mul 136 121 3; Sub 135 135 136; Add 134 134 135; Add 134 96 134; Mul 119 7 119; Mul 135 119 130;
  Mul 118 7 118; Mul 136 118 92; Mul 137 81 52; Add 136 136 137; Add 135 135 136; Mul 136 134 135;
  Sub 57 57 136; Add 125 125 57; Mul 57 1 125; Mul 57 116 57; Mul 126 126 83; Mul 121 121 4; Mul 123 123 91;
  Add 121 121 123; Add 126 126 121; Add 126 87 126; Lit 121 35419999999999991 19; Mul 123 121 120;
  Lit 136 (-49119999999999984) 21; Mul 137 136 127; Lit 138 (-31543689999999985) 18; Mul 139 138 91;
  Add 137 137 139; Add 123 123 137; Add 123 126 123; Mul 137 57 123; Mul 139 129 124; Mul 140 132 122;
  Mul 141 94 128; Add 140 140 141; Add 139 139 140; Mul 140 126 135; Mul 141 120 130; Mul 142 127 92;
  Mul 143 91 52; Add 142 142 143; Add 141 141 142; Mul 142 41 141; Sub 140 140 142; Add 139 139 140;
  Mul 140 1 139; Mul 140 116 140; Mul 142 121 129; Mul 143 136 132; Mul 144 138 94; Add 143 143 144;
  Add 142 142 143; Add 142 134 142; Mul 143 140 142; Add 137 137 143; Mul 143 123 57; Mul 144 142 140;
  Add 143 143 144; Add 144 137 143; Lit 145 26809999999999996 21; Mul 146 145 119; Lit 147 19000000000000001 23;
  Mul 148 147 118; Lit 149 71999999999999997 22; Mul 150 149 81; Add 148 148 150; Add 146 146 148;
  Mul 148 146 129; Mul 150 147 119; Lit 151 2497 8; Mul 152 151 118; Add 150 150 152; Mul 152 150 132;
  Add 148 148 152; Lit 152 35999999999999998 22; Mul 153 152 127; Sub 148 148 153; Mul 153 116 142;
  Mul 121 121 119; Mul 136 136 118; Mul 138 138 81; Add 136 136 138; Add 121 121 136; Add 121 41 121;
  Mul 153 153 121; Sub 153 148 153; Mul 136 1 141; Mul 138 153 136; Mul 154 146 120; Mul 155 150 127;
  Add 154 154 155; Mul 155 152 132; Add 154 154 155; Mul 155 116 123; Mul 155 155 121; Sub 155 154 155;
  Mul 156 1 131; Mul 157 155 156; Sub 138 138 157; Sub 144 144 138; Mul 138 156 155; Mul 157 136 153;
  Sub 138 138 157; Add 144 144 138; Lit 138 80521113 8; Lit 157 (-78693) 9; Mul 158 157 52;
  Lit 159 (-34077999999999997) 18; Mul 160 159 92; Sub 158 158 160; Sub 158 124 158; Mul 160 120 158;
  Arg 161 0 5; Cos 162 161; Mul 163 127 162; Sin 161 161; Mul 164 91 161; Sub 163 163 164; Mul 164 159 130;
  Lit 165 18848000000000001 17; Mul 166 165 52; Sub 164 164 166; Sub 164 122 164; Mul 166 162 164;
  Mul 167 165 92; Mul 168 157 130; Sub 167 167 168; Sub 167 128 167; Mul 168 161 167; Sub 166 166 168;
  Mul 168 163 166; Mul 169 127 161; Mul 170 91 162; Add 169 169 170].
Definition casadi_f4_5 : list instruction := [
  Mul 164 161 164; Mul 167 162 167; Add 164 164 167; Mul 167 169 164; Add 168 168 167; Add 160 160 168;
  Mul 168 165 119; Mul 167 157 118; Mul 170 159 81; Add 167 167 170; Add 168 168 167; Add 168 41 168;
  Arg 167 1 5; Sub 130 130 167; Mul 170 129 130; Mul 171 132 162; Mul 172 94 161; Sub 171 171 172;
  Mul 172 162 92; Mul 173 161 52; Sub 172 172 173; Mul 173 171 172; Mul 174 132 161; Mul 175 94 162;
  Add 174 174 175; Mul 92 161 92; Mul 52 162 52; Add 92 92 52; Mul 52 174 92; Add 173 173 52; Add 170 170 173;
  Mul 173 168 170; Mul 52 165 129; Mul 175 157 132; Mul 176 159 94; Add 175 175 176; Add 52 52 175;
  Add 52 134 52; Mul 175 119 130; Mul 176 118 162; Mul 177 81 161; Sub 176 176 177; Mul 177 176 172;
  Mul 161 118 161; Mul 162 81 162; Add 161 161 162; Mul 162 161 92; Add 177 177 162; Add 175 175 177;
  Mul 177 52 175; Sub 173 173 177; Add 160 160 173; Mul 173 1 160; Mul 173 138 173; Mul 165 165 120;
  Mul 157 157 127; Mul 159 159 91; Add 157 157 159; Add 165 165 157; Add 165 126 165;
  Lit 157 (-94756709999999994) 18; Mul 159 157 120; Lit 177 96069999999999993 21; Mul 162 177 163;
  Lit 178 (-19297299999999999) 19; Mul 179 178 169; Add 162 162 179; Add 159 159 162; Add 159 165 159;
  Mul 162 173 159; Mul 179 129 158; Mul 180 171 166; Mul 181 174 164; Add 180 180 181; Add 179 179 180;
  Mul 180 165 175; Mul 130 120 130; Mul 172 163 172; Mul 92 169 92; Add 172 172 92; Add 130 130 172;
  Mul 172 168 130; Sub 180 180 172; Add 179 179 180; Mul 180 1 179; Mul 180 138 180; Mul 172 157 129;
  Mul 92 177 171; Mul 174 178 174; Add 92 92 174; Add 172 172 92; Add 172 52 172; Mul 92 180 172;
  Add 162 162 92; Mul 92 159 173; Mul 174 172 180; Add 92 92 174; Add 174 162 92;
  Lit 181 (-74054000000000004) 20; Mul 182 181 119; Lit 183 61999999999999999 23; Mul 184 183 176;
  Lit 185 (-69999999999999997) 23; Mul 186 185 161; Add 184 184 186; Add 182 182 184; Mul 184 182 129;
  Mul 186 183 119; Lit 187 (-63539999999999951) 21; Mul 188 187 176; Lit 189 82379999999999994 21;
  Mul 190 189 161; Add 188 188 190; Add 186 186 188; Mul 188 186 171; Add 184 184 188;
  Lit 188 (-34999999999999998) 23; Mul 190 188 163; Lit 191 41189999999999997 21; Mul 192 191 120;
  Sub 190 190 192; Sub 184 184 190; Mul 190 138 172; Mul 157 157 119; Mul 177 177 176; Mul 178 178 161;
  Add 177 177 178; Add 157 157 177; Add 157 168 157; Mul 190 190 157; Sub 190 184 190; Mul 177 1 130;
  Mul 178 190 177; Mul 192 182 120; Mul 193 186 163; Add 192 192 193; Mul 193 188 171; Mul 194 191 129;
  Sub 193 193 194; Add 192 192 193; Mul 193 138 159; Mul 193 193 157; Sub 193 192 193; Mul 194 1 170;
  Mul 195 193 194; Sub 178 178 195; Sub 174 174 178; Mul 178 194 193; Mul 195 177 190].
Definition casadi_f4_6 : list instruction := [
  Sub 178 178 195; Add 174 174 178; Add 144 144 174; Add 98 98 144; Add 61 61 98; Add 28 28 61; Mul 28 28 8;
  Lit 61 81022799999999999 19; Mul 30 30 6; Sub 98 61 30; Mul 70 70 59; Lit 178 1444279 8; Add 195 70 178;
  Mul 107 107 7; Lit 196 61516000000000001 20; Add 197 107 196; Mul 146 146 119; Mul 150 150 118;
  Add 146 146 150; Lit 150 15129 8; Add 198 146 150; Mul 182 182 119; Mul 186 186 176; Add 182 182 186;
  Lit 186 130247 8; Add 199 182 186; Add 200 198 199; Lit 201 25552041058139319 17; Sub 202 142 172; Sq 203 202;
  Sub 204 123 159; Sq 205 204; Add 203 203 205; Mul 203 201 203; Add 200 200 203; Add 203 197 200;
  Lit 205 33804363298149098 17; Lit 206 31733343102372813 17; Mul 207 206 142; Lit 208 68266656897627187 17;
  Mul 209 208 172; Add 207 207 209; Sub 209 104 207; Sq 210 209; Mul 211 206 123; Mul 212 208 159;
  Add 211 211 212; Sub 212 82 211; Sq 213 212; Add 210 210 213; Mul 210 205 210; Add 203 203 210;
  Add 210 195 203; Lit 213 68880865220038789 17; Lit 214 28659699114162585 17; Mul 215 214 104;
  Lit 216 71340300885837415 17; Mul 217 216 207; Add 215 215 217; Sub 217 67 215; Sq 218 217; Mul 219 214 82;
  Mul 220 216 211; Add 219 219 220; Sub 220 44 219; Sq 221 220; Add 218 218 221; Mul 218 213 218;
  Add 210 210 218; Add 218 98 210; Lit 221 60931733999408122 17; Lit 222 41661259613595214 17; Mul 223 222 67;
  Lit 224 58338740386404775 17; Mul 225 224 215; Add 223 223 225; Sub 225 25 223; Sq 226 225; Mul 227 222 44;
  Mul 228 224 219; Add 227 227 228; Sub 228 18 227; Sq 229 228; Add 226 226 229; Mul 226 221 226;
  Add 218 218 226; Mul 226 10 4; Mul 229 21 3; Add 226 226 229; Mul 218 218 226; Add 229 148 184;
  Mul 230 201 202; Sub 231 121 157; Mul 230 230 231; Sub 229 229 230; Add 230 109 229; Mul 232 205 209;
  Mul 206 206 121; Mul 208 208 157; Add 206 206 208; Sub 208 84 206; Mul 232 232 208; Sub 230 230 232;
  Add 232 72 230; Mul 233 213 217; Mul 214 214 84; Mul 216 216 206; Add 214 214 216; Sub 216 46 214;
  Mul 233 233 216; Sub 232 232 233; Add 233 32 232; Mul 234 221 225; Mul 222 222 46; Mul 224 224 214;
  Add 222 222 224; Sub 224 16 222; Mul 234 234 224; Sub 233 233 234; Mul 6 6 13; Mul 5 5 9; Add 6 6 5;
  Mul 5 6 4; Mul 9 233 5; Add 13 154 192; Mul 234 201 204; Mul 234 234 231; Sub 13 13 234; Add 234 117 13;
  Mul 235 205 212; Mul 235 235 208; Sub 234 234 235; Add 235 80 234; Mul 236 213 220; Mul 236 236 216;
  Sub 235 235 236; Add 236 39 235; Mul 237 221 228; Mul 237 237 224; Sub 236 236 237; Mul 237 6 3;
  Mul 238 236 237; Add 9 9 238; Sub 218 218 9; Lit 9 21499798428597569 17; Mul 238 9 25;
  Lit 239 78500201571402428 17; Mul 240 239 223; Add 238 238 240].
Definition casadi_f4_7 : list instruction := [
  Lit 240 36102591500000001 16; Mul 241 9 16; Mul 242 239 222; Add 241 241 242; Mul 242 241 5; Mul 243 238 226;
  Add 242 242 243; Mul 243 2 4; Mul 244 6 243; Sub 242 242 244; Mul 242 240 242; Mul 245 238 242; Mul 9 9 18;
  Mul 239 239 227; Add 9 9 239; Mul 2 2 3; Mul 239 6 2; Mul 246 9 226; Mul 247 241 237; Add 246 246 247;
  Sub 246 239 246; Mul 246 240 246; Mul 247 9 246; Sub 245 245 247; Add 218 218 245; Mul 31 31 17; Mul 245 33 4;
  Mul 29 29 22; Add 245 245 29; Add 31 31 245; Mul 245 31 17; Mul 33 33 17; Lit 17 (-76072000000000032) 20;
  Mul 17 17 4; Add 33 33 17; Mul 17 33 4; Add 245 245 17; Add 17 245 61; Sq 29 25; Sq 22 16; Add 29 29 22;
  Mul 29 0 29; Add 29 17 29; Mul 22 34 29; Mul 31 31 12; Mul 33 33 3; Sub 31 31 33; Mul 33 0 25; Mul 33 33 18;
  Sub 33 31 33; Mul 12 37 33; Sub 22 22 12; Mul 12 16 15; Sq 247 25; Sq 248 18; Add 247 247 248; Mul 247 0 247;
  Add 247 98 247; Mul 248 247 34; Mul 249 1 6; Mul 250 36 249; Sub 248 248 250; Add 12 12 248; Sub 22 22 12;
  Lit 12 (-7844460000000001) 18; Sub 12 12 245; Add 12 12 30; Add 12 12 61; Mul 61 12 10; Mul 30 31 21;
  Add 61 61 30; Mul 30 32 6; Add 61 61 30; Mul 30 25 21; Mul 245 18 10; Sub 30 30 245; Mul 30 0 30;
  Mul 245 18 30; Mul 248 16 10; Mul 250 25 6; Sub 248 248 250; Sub 248 14 248; Mul 248 0 248; Mul 250 16 248;
  Add 245 245 250; Sub 61 61 245; Mul 61 1 61; Sub 22 22 61; Mul 69 69 50; Mul 245 73 4; Mul 71 71 45;
  Add 245 245 71; Add 69 69 245; Mul 245 69 50; Mul 73 73 50; Lit 50 50578999999999902 20; Mul 50 50 4;
  Mul 75 75 45; Add 50 50 75; Add 73 73 50; Mul 50 73 4; Add 245 245 50; Add 50 245 178; Sq 75 67; Sq 45 46;
  Add 75 75 45; Mul 75 38 75; Add 75 50 75; Mul 45 76 75; Mul 69 69 51; Mul 73 73 3; Sub 69 69 73; Mul 78 78 59;
  Sub 69 69 78; Mul 78 38 67; Mul 78 78 44; Sub 78 69 78; Mul 73 63 78; Sub 45 45 73; Mul 73 46 55;
  Mul 43 43 48; Mul 59 59 47; Sub 43 43 59; Mul 59 58 66; Mul 47 40 53; Sub 59 59 47; Add 43 43 59; Mul 59 1 43;
  Mul 59 38 59; Mul 47 59 44; Add 73 73 47; Sq 47 67; Sq 48 44; Add 47 47 48; Mul 47 38 47; Add 47 195 47;
  Mul 48 47 76; Mul 51 1 60; Mul 71 77 51; Sub 48 48 71; Add 73 73 48; Sub 45 45 73;
  Lit 73 (-12468940000000001) 18; Sub 73 73 245; Sub 73 73 70; Add 73 73 178; Mul 178 73 53; Mul 70 69 66;
  Add 178 178 70].
Definition casadi_f4_8 : list instruction := [
  Mul 70 72 60; Add 178 178 70; Mul 70 67 66; Mul 245 44 53; Sub 70 70 245; Sub 70 43 70; Mul 70 38 70;
  Mul 245 44 70; Mul 48 46 53; Mul 71 67 60; Sub 48 48 71; Sub 48 42 48; Mul 48 38 48; Mul 71 46 48;
  Sub 245 245 71; Add 178 178 245; Mul 178 1 178; Sub 45 45 178; Mul 106 106 83; Mul 245 110 4; Mul 108 108 91;
  Add 245 245 108; Add 106 106 245; Mul 245 106 83; Mul 110 110 83; Lit 83 9511000000000003 20; Mul 83 83 4;
  Mul 112 112 91; Add 83 83 112; Add 110 110 83; Mul 83 110 4; Add 245 245 83; Add 83 245 196; Sq 112 104;
  Sq 108 84; Add 112 112 108; Mul 112 79 112; Add 112 83 112; Mul 108 113 112; Mul 106 106 88; Mul 110 110 3;
  Sub 106 106 110; Mul 115 115 7; Sub 106 106 115; Mul 115 79 104; Mul 115 115 82; Sub 115 106 115;
  Mul 110 100 115; Sub 108 108 110; Mul 110 84 54; Mul 7 7 86; Mul 85 81 85; Add 7 7 85; Mul 85 96 103;
  Mul 86 87 93; Sub 85 85 86; Add 7 7 85; Mul 85 1 7; Mul 85 79 85; Mul 86 85 82; Add 110 110 86; Sq 86 104;
  Sq 88 82; Add 86 86 88; Mul 86 79 86; Add 86 197 86; Mul 88 86 113; Mul 71 1 97; Mul 250 114 71;
  Sub 88 88 250; Add 110 110 88; Sub 108 108 110; Lit 110 57300000000000038 21; Sub 110 110 245;
  Sub 110 110 107; Add 110 110 196; Mul 196 110 93; Mul 107 106 103; Add 196 196 107; Mul 107 109 97;
  Add 196 196 107; Mul 107 104 103; Mul 245 82 93; Sub 107 107 245; Sub 107 7 107; Mul 107 79 107;
  Mul 245 82 107; Mul 88 84 93; Mul 250 104 97; Sub 88 88 250; Sub 88 89 88; Mul 88 79 88; Mul 250 84 88;
  Sub 245 245 250; Add 196 196 245; Mul 196 1 196; Sub 108 108 196; Mul 145 145 120; Mul 245 147 127;
  Mul 149 149 91; Add 245 245 149; Add 145 145 245; Mul 245 145 120; Mul 147 147 120; Mul 151 151 127;
  Add 147 147 151; Mul 127 147 127; Add 245 245 127; Add 127 245 150; Sq 151 142; Sq 149 121; Add 151 151 149;
  Mul 151 116 151; Add 151 127 151; Mul 149 156 151; Mul 145 145 129; Mul 147 147 132; Add 145 145 147;
  Mul 152 152 118; Add 145 145 152; Mul 152 116 142; Mul 152 152 123; Sub 152 145 152; Mul 147 136 152;
  Sub 149 149 147; Mul 147 121 57; Mul 124 119 124; Mul 118 118 122; Mul 128 81 128; Add 118 118 128;
  Add 124 124 118; Mul 118 134 141; Mul 128 126 131; Sub 118 118 128; Add 124 124 118; Mul 118 1 124;
  Mul 118 116 118; Mul 128 118 123; Add 147 147 128; Sq 128 142; Sq 122 123; Add 128 128 122; Mul 128 116 128;
  Add 128 198 128; Mul 122 128 156; Mul 132 1 135; Mul 250 153 132; Sub 122 122 250; Add 147 147 122].
Definition casadi_f4_9 : list instruction := [
  Sub 149 149 147; Lit 147 51779999999999996 21; Sub 147 147 245; Sub 147 147 146; Add 147 147 150;
  Mul 150 147 131; Mul 146 145 141; Add 150 150 146; Mul 146 148 135; Add 150 150 146; Mul 146 142 141;
  Mul 245 123 131; Sub 146 146 245; Sub 146 124 146; Mul 146 116 146; Mul 245 123 146; Mul 122 121 131;
  Mul 250 142 135; Sub 122 122 250; Sub 122 125 122; Mul 122 116 122; Mul 250 121 122; Sub 245 245 250;
  Add 150 150 245; Mul 150 1 150; Sub 149 149 150; Mul 181 181 120; Mul 245 183 163; Mul 185 185 169;
  Add 245 245 185; Add 181 181 245; Mul 245 181 120; Mul 183 183 120; Mul 187 187 163; Mul 189 189 169;
  Add 187 187 189; Add 183 183 187; Mul 163 183 163; Add 245 245 163; Add 163 245 186; Sq 187 172; Sq 189 157;
  Add 187 187 189; Mul 187 138 187; Add 187 163 187; Mul 189 194 187; Mul 181 181 129; Mul 183 183 171;
  Add 181 181 183; Mul 188 188 176; Mul 191 191 119; Sub 188 188 191; Add 181 181 188; Mul 188 138 172;
  Mul 188 188 159; Sub 188 181 188; Mul 191 177 188; Sub 189 189 191; Mul 191 157 173; Mul 158 119 158;
  Mul 176 176 166; Mul 161 161 164; Add 176 176 161; Add 158 158 176; Mul 176 52 130; Mul 161 165 170;
  Sub 176 176 161; Add 158 158 176; Mul 176 1 158; Mul 176 138 176; Mul 161 176 159; Add 191 191 161;
  Sq 161 172; Sq 164 159; Add 161 161 164; Mul 161 138 161; Add 161 199 161; Mul 164 161 194; Mul 166 1 175;
  Mul 183 190 166; Sub 164 164 183; Add 191 191 164; Sub 189 189 191; Lit 191 (-80407999999999999) 20;
  Sub 191 191 245; Sub 191 191 182; Add 191 191 186; Mul 186 191 170; Mul 182 181 130; Add 186 186 182;
  Mul 182 184 175; Add 186 186 182; Mul 182 172 130; Mul 245 159 170; Sub 182 182 245; Sub 182 158 182;
  Mul 182 138 182; Mul 245 159 182; Mul 164 157 170; Mul 183 172 175; Sub 164 164 183; Sub 164 160 164;
  Mul 164 138 164; Mul 183 157 164; Sub 245 245 183; Add 186 186 245; Mul 186 1 186; Sub 189 189 186;
  Add 149 149 189; Add 108 108 149; Add 45 45 108; Add 22 22 45; Mul 22 22 4; Mul 245 16 24; Mul 183 35 249;
  Mul 171 247 37; Sub 183 183 171; Sub 245 245 183; Mul 183 34 33; Sq 171 18; Sq 169 16; Add 171 171 169;
  Mul 171 0 171; Add 171 12 171; Mul 169 37 171; Sub 183 183 169; Add 245 245 183; Mul 183 31 10; Mul 169 17 21;
  Add 183 183 169; Mul 169 39 6; Add 183 183 169; Mul 169 25 30; Mul 185 18 6; Mul 250 16 21; Sub 185 185 250;
  Add 185 23 185; Mul 185 0 185; Mul 250 16 185; Sub 169 169 250; Add 183 183 169; Mul 183 1 183;
  Add 245 245 183; Mul 169 76 78; Sq 250 44; Sq 251 46; Add 250 250 251; Mul 250 38 250; Add 250 73 250].
Definition casadi_f4_10 : list instruction := [
  Mul 251 63 250; Sub 169 169 251; Mul 251 46 65; Mul 252 59 67; Add 251 251 252; Mul 252 74 51; Mul 253 47 63;
  Sub 252 252 253; Add 251 251 252; Sub 169 169 251; Mul 251 69 53; Mul 252 50 66; Add 251 251 252;
  Mul 252 80 60; Add 251 251 252; Mul 252 44 60; Mul 253 46 66; Sub 252 252 253; Sub 252 64 252; Mul 252 38 252;
  Mul 253 46 252; Mul 254 67 70; Sub 253 253 254; Add 251 251 253; Mul 251 1 251; Add 169 169 251;
  Mul 253 113 115; Sq 254 82; Sq 255 84; Add 254 254 255; Mul 254 79 254; Add 254 110 254; Mul 255 100 254;
  Sub 253 253 255; Mul 255 84 102; Mul 256 85 104; Add 255 255 256; Mul 256 111 71; Mul 257 86 100;
  Sub 256 256 257; Add 255 255 256; Sub 253 253 255; Mul 255 106 93; Mul 256 83 103; Add 255 255 256;
  Mul 256 117 97; Add 255 255 256; Mul 256 82 97; Mul 257 84 103; Sub 256 256 257; Sub 256 101 256;
  Mul 256 79 256; Mul 257 84 256; Mul 258 104 107; Sub 257 257 258; Add 255 255 257; Mul 255 1 255;
  Add 253 253 255; Mul 257 156 152; Sq 258 123; Sq 259 121; Add 258 258 259; Mul 258 116 258; Add 258 147 258;
  Mul 259 136 258; Sub 257 257 259; Mul 259 121 140; Mul 260 118 142; Add 259 259 260; Mul 260 155 132;
  Mul 261 128 136; Sub 260 260 261; Add 259 259 260; Sub 257 257 259; Mul 259 145 131; Mul 260 127 141;
  Add 259 259 260; Mul 260 154 135; Add 259 259 260; Mul 260 123 135; Mul 261 121 141; Sub 260 260 261;
  Sub 260 139 260; Mul 260 116 260; Mul 261 121 260; Mul 262 142 146; Sub 261 261 262; Add 259 259 261;
  Mul 259 1 259; Add 257 257 259; Mul 261 194 188; Sq 262 159; Sq 263 157; Add 262 262 263; Mul 262 138 262;
  Add 262 191 262; Mul 263 177 262; Sub 261 261 263; Mul 263 157 180; Mul 264 176 172; Add 263 263 264;
  Mul 264 193 166; Mul 265 161 177; Sub 264 264 265; Add 263 263 264; Sub 261 261 263; Mul 263 181 170;
  Mul 264 163 130; Add 263 263 264; Mul 264 192 175; Add 263 263 264; Mul 264 159 175; Mul 265 157 130;
  Sub 264 264 265; Sub 264 179 264; Mul 264 138 264; Mul 265 157 264; Mul 266 172 182; Sub 265 265 266;
  Add 263 263 265; Mul 263 1 263; Add 261 261 263; Add 257 257 261; Add 253 253 257; Add 169 169 253;
  Add 245 245 169; Mul 245 245 3; Sub 22 22 245; Mul 245 0 34; Mul 265 245 16; Mul 266 0 249; Mul 267 25 266;
  Add 267 15 267; Sub 265 265 267; Mul 267 1 248; Add 268 265 267; Mul 269 38 76; Mul 270 269 46; Mul 271 38 51;
  Mul 272 67 271; Add 272 55 272; Sub 270 270 272; Mul 272 1 48; Add 273 270 272; Mul 274 79 113;
  Mul 275 274 84; Mul 276 79 71; Mul 277 104 276; Add 277 54 277].
Definition casadi_f4_11 : list instruction := [
  Sub 275 275 277; Mul 277 1 88; Add 278 275 277; Mul 279 116 156; Mul 280 279 121; Mul 281 116 132;
  Mul 282 142 281; Add 282 57 282; Sub 280 280 282; Mul 282 1 122; Add 283 280 282; Mul 284 138 194;
  Mul 285 284 157; Mul 286 138 166; Mul 287 172 286; Add 287 173 287; Sub 285 285 287; Mul 287 1 164;
  Add 288 285 287; Add 283 283 288; Add 278 278 283; Add 273 273 278; Add 268 268 273; Mul 268 268 243;
  Mul 0 0 37; Mul 289 0 16; Mul 290 18 266; Add 290 24 290; Sub 289 289 290; Mul 290 1 185; Add 291 289 290;
  Mul 292 44 271; Sub 292 65 292; Mul 38 38 63; Mul 293 38 46; Add 292 292 293; Mul 293 1 252; Sub 294 292 293;
  Mul 295 82 276; Sub 295 102 295; Mul 79 79 100; Mul 296 79 84; Add 295 295 296; Mul 296 1 256;
  Sub 297 295 296; Mul 298 123 281; Sub 298 140 298; Mul 116 116 136; Mul 299 116 121; Add 298 298 299;
  Mul 299 1 260; Sub 300 298 299; Mul 301 159 286; Sub 301 180 301; Mul 302 138 177; Mul 303 302 157;
  Add 301 301 303; Mul 303 1 264; Sub 304 301 303; Add 300 300 304; Add 297 297 300; Add 294 294 297;
  Add 291 291 294; Mul 291 291 2; Add 268 268 291; Sub 22 22 268; Add 218 218 22; Mul 218 218 11; Add 28 28 218;
  Mul 218 60 4; Mul 22 232 218; Mul 268 60 3; Mul 291 235 268; Add 22 22 291; Mul 291 53 4; Mul 305 66 3;
  Add 291 291 305; Mul 210 210 291; Sub 22 22 210; Lit 210 28340607100000001 16; Mul 305 43 3; Mul 306 49 4;
  Mul 307 60 306; Mul 58 58 4; Mul 40 40 3; Add 58 58 40; Mul 40 53 58; Add 307 307 40; Add 305 305 307;
  Mul 307 222 218; Mul 40 223 291; Add 307 307 40; Sub 307 305 307; Mul 307 210 307; Mul 40 223 307;
  Mul 43 43 4; Mul 308 66 58; Mul 49 49 3; Mul 309 60 49; Add 308 308 309; Sub 43 43 308; Mul 308 227 291;
  Mul 309 222 268; Add 308 308 309; Add 308 43 308; Mul 308 210 308; Mul 309 227 308; Sub 40 40 309;
  Add 22 22 40; Mul 273 273 306; Mul 294 294 49; Mul 40 38 44; Mul 309 269 67; Add 40 40 309; Mul 309 44 38;
  Mul 310 67 269; Add 309 309 310; Sub 310 40 309; Mul 311 79 82; Mul 312 274 104; Add 311 311 312;
  Mul 312 82 79; Mul 313 104 274; Add 312 312 313; Sub 313 311 312; Mul 314 116 123; Mul 315 279 142;
  Add 314 314 315; Mul 315 123 116; Mul 316 142 279; Add 315 315 316; Sub 316 314 315; Mul 317 302 159;
  Mul 318 284 172; Add 317 317 318; Mul 318 159 302; Mul 319 172 284; Add 318 318 319; Sub 319 317 318;
  Add 320 316 319; Add 321 313 320; Add 322 310 321; Mul 322 322 58; Sub 294 294 322; Add 273 273 294;
  Mul 169 169 3; Mul 45 45 4; Sub 169 169 45; Add 273 273 169].
Definition casadi_f4_12 : list instruction := [
  Add 22 22 273; Mul 22 22 56; Add 28 28 22; Mul 22 93 4; Mul 273 103 3; Add 22 22 273; Mul 203 203 22;
  Mul 273 97 4; Mul 169 230 273; Mul 45 97 3; Mul 294 234 45; Add 169 169 294; Sub 203 203 169;
  Lit 169 165335532 8; Mul 294 214 273; Mul 322 215 22; Add 294 294 322; Mul 322 7 3; Mul 323 90 4;
  Mul 324 97 323; Mul 96 96 4; Mul 87 87 3; Add 96 96 87; Mul 87 93 96; Add 324 324 87; Add 322 322 324;
  Sub 294 294 322; Mul 294 169 294; Mul 324 215 294; Mul 87 103 96; Mul 90 90 3; Mul 325 97 90; Add 87 87 325;
  Mul 7 7 4; Sub 87 87 7; Mul 7 219 22; Mul 325 214 45; Add 7 7 325; Sub 7 87 7; Mul 7 169 7; Mul 325 219 7;
  Sub 324 324 325; Add 203 203 324; Mul 321 321 96; Mul 297 297 90; Sub 321 321 297; Mul 278 278 323;
  Sub 321 321 278; Mul 108 108 4; Mul 253 253 3; Sub 108 108 253; Add 321 321 108; Add 203 203 321;
  Mul 203 203 95; Add 28 28 203; Mul 203 135 91; Mul 321 141 81; Sub 203 203 321; Mul 321 229 203;
  Mul 108 131 81; Mul 253 135 94; Sub 108 108 253; Mul 253 13 108; Add 321 321 253; Mul 253 141 94;
  Mul 278 131 91; Sub 253 253 278; Mul 278 200 253; Add 321 321 278; Lit 278 117950866 8; Mul 297 139 81;
  Mul 324 124 94; Sub 297 297 324; Mul 324 41 91; Mul 325 126 81; Sub 324 324 325; Mul 325 135 324;
  Mul 126 126 94; Mul 326 134 91; Sub 126 126 326; Mul 326 131 126; Sub 325 325 326; Add 297 297 325;
  Mul 325 206 203; Mul 326 207 253; Sub 325 325 326; Sub 325 297 325; Mul 325 278 325; Mul 326 207 325;
  Mul 124 124 91; Mul 327 125 81; Sub 124 124 327; Mul 327 141 126; Mul 134 134 81; Mul 41 41 94;
  Sub 134 134 41; Mul 41 135 134; Sub 327 327 41; Add 124 124 327; Mul 327 211 253; Mul 41 206 108;
  Sub 327 327 41; Sub 327 124 327; Mul 327 278 327; Mul 41 211 327; Sub 326 326 41; Add 321 321 326;
  Mul 326 283 324; Mul 41 300 134; Mul 328 320 126; Add 41 41 328; Add 326 326 41; Mul 41 257 94;
  Mul 328 149 91; Mul 329 144 81; Add 328 328 329; Add 41 41 328; Sub 326 326 41; Add 321 321 326;
  Mul 326 321 133; Add 28 28 326; Mul 326 175 120; Mul 41 130 119; Sub 326 326 41; Mul 41 184 326;
  Mul 328 170 119; Mul 329 175 129; Sub 328 328 329; Mul 329 192 328; Add 41 41 329; Mul 329 130 129;
  Mul 330 170 120; Sub 329 329 330; Mul 330 199 329; Add 41 41 330; Mul 330 179 119; Mul 331 158 129;
  Sub 330 330 331; Mul 331 168 120; Mul 332 165 119; Sub 331 331 332; Mul 332 175 331; Mul 165 165 129;
  Mul 333 52 120; Sub 165 165 333; Mul 333 170 165; Sub 332 332 333; Add 330 330 332; Mul 332 157 326].
Definition casadi_f4_13 : list instruction := [
  Mul 333 172 329; Sub 332 332 333; Sub 330 330 332; Mul 330 138 330; Mul 332 172 330; Mul 158 158 120;
  Mul 333 160 119; Sub 158 158 333; Mul 333 130 165; Mul 52 52 119; Mul 168 168 129; Sub 52 52 168;
  Mul 168 175 52; Sub 333 333 168; Add 158 158 333; Mul 333 159 329; Mul 168 157 328; Sub 333 333 168;
  Sub 158 158 333; Mul 158 138 158; Mul 333 159 158; Sub 332 332 333; Add 41 41 332; Mul 332 288 331;
  Mul 333 304 52; Mul 168 319 165; Add 333 333 168; Add 332 332 333; Mul 333 261 129; Mul 168 189 120;
  Mul 334 174 119; Add 168 168 334; Add 333 333 168; Sub 332 332 333; Add 41 41 332; Mul 332 41 167;
  Add 28 28 332; Out 0 0 28; Mul 28 249 36; Mul 332 34 247; Sub 28 28 332; Mul 332 15 16; Mul 333 33 37;
  Mul 168 29 34; Sub 333 333 168; Add 332 332 333; Sub 28 28 332; Add 28 28 61; Mul 61 51 77; Mul 332 76 47;
  Sub 61 61 332; Mul 332 44 59; Mul 333 55 46; Add 332 332 333; Mul 333 78 63; Mul 168 75 76; Sub 333 333 168;
  Add 332 332 333; Sub 61 61 332; Add 61 61 178; Mul 178 71 114; Mul 332 113 86; Sub 178 178 332; Mul 332 82 85;
  Mul 333 54 84; Add 332 332 333; Mul 333 115 100; Mul 168 112 113; Sub 333 333 168; Add 332 332 333;
  Sub 178 178 332; Add 178 178 196; Mul 196 132 153; Mul 332 156 128; Sub 196 196 332; Mul 332 123 118;
  Mul 333 57 121; Add 332 332 333; Mul 333 152 136; Mul 168 151 156; Sub 333 333 168; Add 332 332 333;
  Sub 196 196 332; Add 196 196 150; Mul 150 166 190; Mul 332 194 161; Sub 150 150 332; Mul 332 159 176;
  Mul 333 173 157; Add 332 332 333; Mul 333 188 177; Mul 168 187 194; Sub 333 333 168; Add 332 332 333;
  Sub 150 150 332; Add 150 150 186; Add 196 196 150; Add 178 178 196; Add 61 61 178; Add 28 28 61; Mul 28 4 28;
  Mul 186 24 16; Mul 332 171 37; Mul 333 33 34; Sub 332 332 333; Sub 186 186 332; Mul 247 37 247;
  Mul 332 249 35; Sub 247 247 332; Add 186 186 247; Sub 186 186 183; Mul 47 63 47; Mul 183 51 74; Sub 47 47 183;
  Mul 183 67 59; Mul 247 65 46; Add 183 183 247; Mul 247 250 63; Mul 332 78 76; Sub 247 247 332;
  Add 183 183 247; Sub 47 47 183; Sub 47 47 251; Mul 86 100 86; Mul 251 71 111; Sub 86 86 251; Mul 251 104 85;
  Mul 183 102 84; Add 251 251 183; Mul 183 254 100; Mul 247 115 113; Sub 183 183 247; Add 251 251 183;
  Sub 86 86 251; Sub 86 86 255; Mul 128 136 128; Mul 255 132 155; Sub 128 128 255; Mul 255 142 118;
  Mul 251 140 121; Add 255 255 251; Mul 251 258 136; Mul 183 152 156; Sub 251 251 183; Add 255 255 251;
  Sub 128 128 255; Sub 128 128 259; Mul 161 177 161; Mul 259 166 193].
Definition casadi_f4_14 : list instruction := [
  Sub 161 161 259; Mul 259 172 176; Mul 255 180 157; Add 259 259 255; Mul 255 262 177; Mul 251 188 194;
  Sub 255 255 251; Add 259 259 255; Sub 161 161 259; Sub 161 161 263; Add 128 128 161; Add 86 86 128;
  Add 47 47 86; Add 186 186 47; Mul 186 3 186; Sub 28 28 186; Sub 265 265 267; Sub 270 270 272; Sub 275 275 277;
  Sub 280 280 282; Sub 285 285 287; Add 280 280 285; Add 275 275 280; Add 270 270 275; Add 265 265 270;
  Mul 265 243 265; Sub 289 289 290; Add 292 292 293; Add 295 295 296; Add 298 298 299; Add 301 301 303;
  Add 298 298 301; Add 295 295 298; Add 292 292 295; Add 289 289 292; Mul 289 2 289; Add 265 265 289;
  Sub 28 28 265; Mul 28 28 8; Mul 236 236 226; Add 145 145 181; Mul 265 201 202; Mul 265 265 204;
  Sub 145 145 265; Add 106 106 145; Mul 265 205 209; Mul 265 265 212; Sub 106 106 265; Add 69 69 106;
  Mul 265 213 217; Mul 265 265 220; Sub 69 69 265; Add 31 31 69; Mul 265 221 225; Mul 265 265 228;
  Sub 31 31 265; Mul 265 31 5; Add 127 127 163; Sq 202 202; Sq 289 231; Add 202 202 289; Mul 202 201 202;
  Add 127 127 202; Add 83 83 127; Sq 209 209; Sq 202 208; Add 209 209 202; Mul 209 205 209; Add 83 83 209;
  Add 50 50 83; Sq 217 217; Sq 209 216; Add 217 217 209; Mul 217 213 217; Add 50 50 217; Add 17 17 50;
  Sq 225 225; Sq 217 224; Add 225 225 217; Mul 225 221 225; Add 17 17 225; Mul 17 17 237; Add 265 265 17;
  Sub 236 236 265; Mul 265 241 246; Mul 14 14 3; Mul 23 23 4; Sub 14 14 23; Mul 23 21 243; Mul 17 10 2;
  Sub 23 23 17; Add 14 14 23; Mul 23 9 5; Mul 17 238 237; Sub 23 23 17; Sub 23 14 23; Mul 240 240 23;
  Mul 238 238 240; Sub 265 265 238; Add 236 236 265; Mul 265 249 33; Mul 238 34 35; Sub 265 265 238;
  Mul 238 18 15; Sub 238 238 19; Mul 19 15 18; Sub 19 19 27; Add 238 238 19; Mul 19 35 34; Mul 27 33 249;
  Sub 19 19 27; Add 238 238 19; Sub 265 265 238; Mul 238 51 78; Mul 19 76 74; Sub 238 238 19; Mul 19 44 55;
  Mul 27 59 46; Add 27 27 62; Sub 19 19 27; Mul 62 55 44; Mul 23 46 59; Add 23 23 68; Sub 62 62 23;
  Add 19 19 62; Mul 62 74 76; Mul 68 78 51; Sub 62 62 68; Add 19 19 62; Sub 238 238 19; Mul 19 71 115;
  Mul 62 113 111; Sub 19 19 62; Mul 62 82 54; Mul 68 85 84; Add 68 68 99; Sub 62 62 68; Mul 99 54 82;
  Mul 17 84 85; Add 17 17 105; Sub 99 99 17; Add 62 62 99; Mul 99 111 113; Mul 105 115 71; Sub 99 99 105;
  Add 62 62 99; Sub 19 19 62; Mul 62 132 152; Mul 99 156 155].
Definition casadi_f4_15 : list instruction := [
  Sub 62 62 99; Mul 99 123 57; Mul 105 118 121; Add 105 105 137; Sub 99 99 105; Mul 137 57 123; Mul 225 121 118;
  Add 225 225 143; Sub 137 137 225; Add 99 99 137; Mul 137 155 156; Mul 143 152 132; Sub 137 137 143;
  Add 99 99 137; Sub 62 62 99; Mul 99 166 188; Mul 137 194 193; Sub 99 99 137; Mul 137 159 173; Mul 143 176 157;
  Add 143 143 162; Sub 137 137 143; Mul 162 173 159; Mul 217 157 176; Add 217 217 92; Sub 162 162 217;
  Add 137 137 162; Mul 162 193 194; Mul 92 188 166; Sub 162 162 92; Add 137 137 162; Sub 99 99 137;
  Add 62 62 99; Add 19 19 62; Add 238 238 19; Add 265 265 238; Mul 265 265 4; Mul 137 18 24; Mul 162 15 25;
  Sub 137 137 162; Mul 162 29 249; Mul 92 35 37; Sub 162 162 92; Sub 137 137 162; Mul 162 249 171; Mul 92 34 36;
  Sub 162 162 92; Add 137 137 162; Mul 32 32 10; Mul 39 39 21; Add 32 32 39; Mul 98 98 6; Add 32 32 98;
  Mul 248 25 248; Mul 185 18 185; Add 248 248 185; Add 32 32 248; Mul 32 1 32; Sub 137 137 32; Mul 248 51 250;
  Mul 185 76 77; Sub 248 248 185; Mul 185 44 65; Mul 98 55 67; Add 185 185 98; Mul 98 75 51; Mul 6 74 63;
  Sub 98 98 6; Add 185 185 98; Sub 248 248 185; Mul 72 72 53; Mul 80 80 66; Add 72 72 80; Mul 195 195 60;
  Add 72 72 195; Mul 48 67 48; Mul 252 44 252; Sub 48 48 252; Add 72 72 48; Mul 72 1 72; Sub 248 248 72;
  Mul 48 71 254; Mul 252 113 114; Sub 48 48 252; Mul 252 82 102; Mul 195 54 104; Add 252 252 195;
  Mul 195 112 71; Mul 60 111 100; Sub 195 195 60; Add 252 252 195; Sub 48 48 252; Mul 109 109 93;
  Mul 117 117 103; Add 109 109 117; Mul 197 197 97; Add 109 109 197; Mul 88 104 88; Mul 256 82 256;
  Sub 88 88 256; Add 109 109 88; Mul 109 1 109; Sub 48 48 109; Mul 88 132 258; Mul 256 156 153; Sub 88 88 256;
  Mul 256 123 140; Mul 197 57 142; Add 256 256 197; Mul 197 151 132; Mul 97 155 136; Sub 197 197 97;
  Add 256 256 197; Sub 88 88 256; Mul 148 148 131; Mul 154 154 141; Add 148 148 154; Mul 198 198 135;
  Add 148 148 198; Mul 122 142 122; Mul 260 123 260; Sub 122 122 260; Add 148 148 122; Mul 148 1 148;
  Sub 88 88 148; Mul 122 166 262; Mul 260 194 190; Sub 122 122 260; Mul 260 159 180; Mul 198 173 172;
  Add 260 260 198; Mul 198 187 166; Mul 135 193 177; Sub 198 198 135; Add 260 260 198; Sub 122 122 260;
  Mul 260 184 170; Mul 198 192 130; Add 260 260 198; Mul 175 199 175; Add 260 260 175; Mul 164 172 164;
  Mul 264 159 264; Sub 164 164 264; Add 260 260 164; Mul 260 1 260; Sub 122 122 260; Add 88 88 122;
  Add 48 48 88].
Definition casadi_f4_16 : list instruction := [
  Add 248 248 48; Add 137 137 248; Mul 137 137 3; Sub 265 265 137; Mul 137 245 18; Mul 164 25 0;
  Sub 137 137 164; Mul 30 1 30; Add 164 137 30; Mul 264 67 38; Sub 264 59 264; Mul 175 269 44; Add 264 264 175;
  Mul 70 1 70; Sub 175 264 70; Mul 198 104 79; Sub 198 85 198; Mul 135 274 82; Add 198 198 135; Mul 107 1 107;
  Sub 135 198 107; Mul 154 142 116; Sub 154 118 154; Mul 256 279 123; Add 154 154 256; Mul 146 1 146;
  Sub 256 154 146; Mul 197 172 302; Sub 197 176 197; Mul 97 284 159; Add 197 197 97; Mul 1 1 182; Sub 182 197 1;
  Add 256 256 182; Add 135 135 256; Add 175 175 135; Add 164 164 175; Mul 164 164 243; Mul 97 0 18;
  Mul 117 16 266; Mul 252 18 0; Mul 195 25 245; Add 252 252 195; Add 117 117 252; Sub 97 97 117; Mul 252 18 0;
  Mul 266 266 16; Mul 16 0 18; Mul 195 245 25; Add 16 16 195; Add 266 266 16; Sub 252 252 266; Sub 97 97 252;
  Mul 252 38 44; Mul 16 46 271; Add 16 16 309; Sub 252 252 16; Mul 309 44 38; Mul 195 271 46; Add 195 195 40;
  Sub 309 309 195; Sub 252 252 309; Mul 309 79 82; Mul 40 84 276; Add 40 40 312; Sub 309 309 40; Mul 312 82 79;
  Mul 60 276 84; Add 60 60 311; Sub 312 312 60; Sub 309 309 312; Mul 312 116 123; Mul 311 121 281;
  Add 311 311 315; Sub 312 312 311; Mul 315 123 116; Mul 80 281 121; Add 80 80 314; Sub 315 315 80;
  Sub 312 312 315; Mul 315 302 159; Mul 314 157 286; Add 314 314 318; Sub 315 315 314; Mul 318 159 302;
  Mul 185 286 157; Add 185 185 317; Sub 318 318 185; Sub 315 315 318; Add 318 312 315; Add 317 309 318;
  Add 98 252 317; Add 6 97 98; Mul 6 6 2; Add 164 164 6; Sub 265 265 164; Add 236 236 265; Mul 236 4 236;
  Mul 233 233 226; Add 147 147 191; Sq 204 204; Sq 231 231; Add 204 204 231; Mul 201 201 204; Add 147 147 201;
  Add 110 110 147; Sq 212 212; Sq 208 208; Add 212 212 208; Mul 205 205 212; Add 110 110 205; Add 73 73 110;
  Sq 220 220; Sq 216 216; Add 220 220 216; Mul 213 213 220; Add 73 73 213; Add 12 12 73; Sq 228 228; Sq 224 224;
  Add 228 228 224; Mul 221 221 228; Add 12 12 221; Mul 12 12 5; Mul 31 31 237; Add 12 12 31; Sub 233 233 12;
  Mul 9 9 240; Mul 241 241 242; Sub 9 9 241; Add 233 233 9; Mul 24 24 18; Mul 15 25 15; Sub 24 24 15;
  Mul 34 36 34; Mul 171 171 249; Sub 34 34 171; Sub 24 24 34; Mul 35 37 35; Mul 29 249 29; Sub 35 35 29;
  Add 24 24 35; Add 24 24 32; Mul 74 63 74; Mul 75 51 75; Sub 74 74 75; Mul 75 67 55; Mul 32 65 44;
  Add 75 75 32].
Definition casadi_f4_17 : list instruction := [
  Mul 76 77 76; Mul 250 250 51; Sub 76 76 250; Add 75 75 76; Sub 74 74 75; Add 74 74 72; Mul 111 100 111;
  Mul 112 71 112; Sub 111 111 112; Mul 112 104 54; Mul 72 102 82; Add 112 112 72; Mul 113 114 113;
  Mul 254 254 71; Sub 113 113 254; Add 112 112 113; Sub 111 111 112; Add 111 111 109; Mul 155 136 155;
  Mul 151 132 151; Sub 155 155 151; Mul 151 142 57; Mul 109 140 123; Add 151 151 109; Mul 156 153 156;
  Mul 258 258 132; Sub 156 156 258; Add 151 151 156; Sub 155 155 151; Add 155 155 148; Mul 193 177 193;
  Mul 187 166 187; Sub 193 193 187; Mul 187 172 173; Mul 148 180 159; Add 187 187 148; Mul 194 190 194;
  Mul 262 262 166; Sub 194 194 262; Add 187 187 194; Sub 193 193 187; Add 193 193 260; Add 155 155 193;
  Add 111 111 155; Add 74 74 111; Add 24 24 74; Mul 24 24 4; Add 20 20 26; Mul 26 33 249; Mul 260 36 37;
  Sub 26 26 260; Sub 20 20 26; Mul 37 37 36; Mul 249 249 33; Sub 37 37 249; Add 20 20 37; Mul 37 63 77;
  Mul 249 51 78; Sub 37 37 249; Mul 249 67 65; Sub 249 249 27; Mul 27 65 67; Sub 27 27 23; Add 249 249 27;
  Mul 78 78 51; Mul 77 77 63; Sub 78 78 77; Add 249 249 78; Sub 37 37 249; Mul 249 100 114; Mul 78 71 115;
  Sub 249 249 78; Mul 78 104 102; Sub 78 78 68; Mul 68 102 104; Sub 68 68 17; Add 78 78 68; Mul 115 115 71;
  Mul 114 114 100; Sub 115 115 114; Add 78 78 115; Sub 249 249 78; Mul 78 136 153; Mul 115 132 152;
  Sub 78 78 115; Mul 115 142 140; Sub 115 115 105; Mul 105 140 142; Sub 105 105 225; Add 115 115 105;
  Mul 152 152 132; Mul 153 153 136; Sub 152 152 153; Add 115 115 152; Sub 78 78 115; Mul 115 177 190;
  Mul 152 166 188; Sub 115 115 152; Mul 152 172 180; Sub 152 152 143; Mul 143 180 172; Sub 143 143 217;
  Add 152 152 143; Mul 188 188 166; Mul 190 190 177; Sub 188 188 190; Add 152 152 188; Sub 115 115 152;
  Add 78 78 115; Add 249 249 78; Add 37 37 249; Add 20 20 37; Mul 20 20 3; Sub 24 24 20; Mul 20 245 25;
  Sub 20 20 117; Mul 117 25 245; Sub 117 117 266; Sub 20 20 117; Mul 117 269 67; Sub 117 117 16; Mul 16 67 269;
  Sub 16 16 195; Sub 117 117 16; Mul 16 274 104; Sub 16 16 40; Mul 40 104 274; Sub 40 40 60; Sub 16 16 40;
  Mul 40 279 142; Sub 40 40 311; Mul 311 142 279; Sub 311 311 80; Sub 40 40 311; Mul 311 284 172;
  Sub 311 311 314; Mul 314 172 284; Sub 314 314 185; Sub 311 311 314; Add 314 40 311; Add 185 16 314;
  Add 80 117 185; Add 60 20 80; Mul 60 60 243; Mul 0 0 25; Mul 18 18 245; Sub 0 0 18; Sub 18 0 30;
  Mul 245 38 67].
Definition casadi_f4_18 : list instruction := [
  Mul 25 44 269; Add 59 59 25; Sub 245 245 59; Add 59 245 70; Mul 25 79 104; Mul 195 82 274; Add 85 85 195;
  Sub 25 25 85; Add 85 25 107; Mul 195 116 142; Mul 266 123 279; Add 118 118 266; Sub 195 195 118;
  Add 118 195 146; Mul 266 302 172; Mul 152 159 284; Add 176 176 152; Sub 266 266 176; Add 176 266 1;
  Add 118 118 176; Add 85 85 118; Add 59 59 85; Add 18 18 59; Mul 18 18 2; Add 60 60 18; Sub 24 24 60;
  Add 233 233 24; Mul 233 3 233; Sub 236 236 233; Sub 137 137 30; Add 264 264 70; Add 198 198 107;
  Add 154 154 146; Add 197 197 1; Add 154 154 197; Add 198 198 154; Add 264 264 198; Add 137 137 264;
  Mul 137 137 4; Add 40 40 311; Add 16 16 40; Add 117 117 16; Add 20 20 117; Mul 20 20 3; Sub 137 137 20;
  Add 246 246 137; Mul 246 243 246; Add 312 312 315; Add 309 309 312; Add 252 252 309; Add 97 97 252;
  Mul 97 97 4; Add 0 0 30; Sub 245 245 70; Sub 25 25 107; Sub 195 195 146; Sub 266 266 1; Add 195 195 266;
  Add 25 25 195; Add 245 245 25; Add 0 0 245; Mul 0 0 3; Sub 97 97 0; Add 242 242 97; Mul 242 2 242;
  Add 246 246 242; Sub 236 236 246; Mul 236 236 11; Add 28 28 236; Mul 236 69 218; Mul 246 50 268;
  Add 236 236 246; Mul 246 235 291; Sub 236 236 246; Mul 246 222 308; Mul 53 53 49; Mul 66 66 306; Sub 53 53 66;
  Mul 64 64 4; Mul 42 42 3; Add 64 64 42; Sub 53 53 64; Mul 64 223 268; Mul 42 227 218; Sub 64 64 42;
  Sub 64 53 64; Mul 64 210 64; Mul 42 223 64; Sub 246 246 42; Add 236 236 246; Mul 246 175 306; Mul 42 98 49;
  Mul 44 271 44; Mul 38 46 38; Add 65 65 38; Sub 44 44 65; Add 65 44 293; Mul 82 276 82; Mul 79 84 79;
  Add 102 102 79; Sub 82 82 102; Add 102 82 296; Mul 123 281 123; Mul 116 121 116; Add 140 140 116;
  Sub 123 123 140; Add 140 123 299; Mul 116 286 159; Mul 302 157 302; Add 180 180 302; Sub 116 116 180;
  Add 180 116 303; Add 140 140 180; Add 102 102 140; Add 65 65 102; Mul 65 65 58; Sub 42 42 65; Add 246 246 42;
  Mul 42 248 3; Mul 65 238 4; Sub 42 42 65; Add 246 246 42; Add 236 236 246; Mul 246 4 236; Mul 42 73 218;
  Mul 65 69 268; Add 42 42 65; Mul 65 232 291; Sub 42 42 65; Mul 65 227 64; Mul 302 222 307; Sub 65 65 302;
  Add 42 42 65; Mul 65 80 306; Mul 302 59 49; Mul 46 46 269; Sub 55 55 46; Mul 271 271 67; Add 55 55 271;
  Sub 271 55 272; Mul 84 84 274; Sub 54 54 84; Mul 276 276 104; Add 54 54 276; Sub 276 54 277; Mul 121 121 279;
  Sub 57 57 121; Mul 281 281 142; Add 57 57 281].
Definition casadi_f4_19 : list instruction := [
  Sub 281 57 282; Mul 284 157 284; Sub 173 173 284; Mul 286 286 172; Add 173 173 286; Sub 286 173 287;
  Add 281 281 286; Add 276 276 281; Add 271 271 276; Mul 271 271 58; Sub 302 302 271; Add 65 65 302;
  Mul 302 37 3; Mul 271 74 4; Sub 302 302 271; Add 65 65 302; Add 42 42 65; Mul 65 3 42; Sub 246 246 65;
  Mul 65 117 3; Mul 302 264 4; Sub 65 65 302; Add 308 308 65; Mul 65 243 308; Mul 302 245 3; Mul 271 252 4;
  Sub 302 302 271; Add 307 307 302; Mul 302 2 307; Add 65 65 302; Sub 246 246 65; Mul 246 246 56; Add 28 28 246;
  Mul 246 234 22; Mul 65 106 273; Mul 302 83 45; Add 65 65 302; Sub 246 246 65; Mul 65 214 7; Mul 101 101 4;
  Mul 89 89 3; Add 101 101 89; Mul 103 103 323; Mul 93 93 90; Sub 103 103 93; Add 101 101 103; Mul 103 219 273;
  Mul 93 215 45; Sub 103 103 93; Sub 103 101 103; Mul 103 169 103; Mul 93 215 103; Sub 65 65 93; Add 246 246 65;
  Mul 65 102 96; Mul 93 317 90; Sub 65 65 93; Mul 93 135 323; Sub 65 65 93; Mul 93 19 4; Mul 89 48 3;
  Sub 93 93 89; Add 65 65 93; Add 246 246 65; Mul 65 4 246; Mul 93 230 22; Mul 89 110 273; Mul 302 106 45;
  Add 89 89 302; Sub 93 93 89; Mul 89 219 103; Mul 302 214 294; Sub 89 89 302; Add 93 93 89; Mul 89 276 96;
  Mul 302 85 90; Sub 89 89 302; Mul 302 185 323; Sub 89 89 302; Mul 302 111 4; Mul 271 249 3; Sub 302 302 271;
  Add 89 89 302; Add 93 93 89; Mul 89 3 93; Sub 65 65 89; Mul 89 198 4; Mul 302 16 3; Sub 89 89 302; Add 7 7 89;
  Mul 89 243 7; Mul 302 309 4; Mul 271 25 3; Sub 302 302 271; Add 294 294 302; Mul 302 2 294; Add 89 89 302;
  Sub 65 65 89; Mul 65 65 95; Add 28 28 65; Mul 65 145 203; Mul 89 127 108; Add 65 65 89; Mul 89 13 253;
  Add 65 65 89; Mul 89 206 327; Mul 125 125 94; Mul 139 139 91; Sub 125 125 139; Mul 131 131 134;
  Mul 141 141 324; Sub 131 131 141; Add 125 125 131; Mul 131 207 108; Mul 141 211 203; Sub 131 131 141;
  Sub 131 125 131; Mul 131 278 131; Mul 141 207 131; Sub 89 89 141; Add 65 65 89; Mul 89 256 324;
  Mul 141 318 134; Mul 139 140 126; Add 141 141 139; Add 89 89 141; Mul 141 88 94; Mul 139 62 91;
  Mul 302 196 81; Add 139 139 302; Add 141 141 139; Sub 89 89 141; Add 65 65 89; Mul 89 4 65; Mul 141 147 203;
  Mul 139 145 108; Add 141 141 139; Mul 139 229 253; Add 141 141 139; Mul 139 211 131; Mul 302 206 325;
  Sub 139 139 302; Add 141 141 139; Mul 139 314 324; Mul 302 118 134; Mul 271 281 126; Add 302 302 271;
  Add 139 139 302; Mul 302 78 94].
Definition casadi_f4_20 : list instruction := [
  Mul 271 155 91; Mul 284 128 81; Add 271 271 284; Add 302 302 271; Sub 139 139 302; Add 141 141 139;
  Mul 139 3 141; Sub 89 89 139; Mul 139 40 94; Mul 302 154 91; Mul 271 280 81; Add 302 302 271; Add 139 139 302;
  Sub 327 327 139; Mul 139 243 327; Mul 302 195 94; Mul 271 312 91; Mul 284 298 81; Add 271 271 284;
  Add 302 302 271; Sub 325 325 302; Mul 302 2 325; Add 139 139 302; Sub 89 89 139; Mul 89 89 133; Add 28 28 89;
  Mul 89 181 326; Mul 139 163 328; Add 89 89 139; Mul 139 192 329; Add 89 89 139; Mul 139 157 158;
  Mul 160 160 129; Mul 179 179 120; Sub 160 160 179; Mul 170 170 52; Mul 130 130 331; Sub 170 170 130;
  Add 160 160 170; Mul 170 172 328; Mul 130 159 326; Sub 170 170 130; Sub 160 160 170; Mul 160 138 160;
  Mul 170 172 160; Sub 139 139 170; Add 89 89 139; Mul 139 182 331; Mul 170 315 52; Mul 130 180 165;
  Add 170 170 130; Add 139 139 170; Mul 170 122 129; Mul 130 99 120; Mul 179 150 119; Add 130 130 179;
  Add 170 170 130; Sub 139 139 170; Add 89 89 139; Mul 139 4 89; Mul 326 191 326; Mul 328 181 328;
  Add 326 326 328; Mul 329 184 329; Add 326 326 329; Mul 329 159 160; Mul 328 157 330; Sub 329 329 328;
  Add 326 326 329; Mul 329 311 331; Mul 328 176 52; Mul 170 286 165; Add 328 328 170; Add 329 329 328;
  Mul 328 115 129; Mul 170 193 120; Mul 130 161 119; Add 170 170 130; Add 328 328 170; Sub 329 329 328;
  Add 326 326 329; Mul 329 3 326; Sub 139 139 329; Mul 329 311 129; Mul 328 197 120; Mul 170 285 119;
  Add 328 328 170; Add 329 329 328; Sub 158 158 329; Mul 329 243 158; Mul 328 266 129; Mul 170 315 120;
  Mul 130 301 119; Add 170 170 130; Add 328 328 170; Sub 330 330 328; Mul 328 2 330; Add 329 329 328;
  Sub 139 139 329; Mul 139 139 167; Add 28 28 139; Out 0 1 28; Mul 270 306 270; Mul 292 49 292; Add 316 316 319;
  Add 313 313 316; Add 310 310 313; Mul 310 58 310; Sub 292 292 310; Add 270 270 292; Mul 47 3 47; Mul 61 4 61;
  Sub 47 47 61; Add 270 270 47; Mul 270 270 8; Mul 232 232 3; Mul 235 235 4; Sub 232 232 235; Mul 235 222 3;
  Sub 235 49 235; Mul 235 210 235; Mul 47 223 235; Mul 61 222 4; Sub 61 306 61; Mul 61 210 61; Mul 292 227 61;
  Sub 47 47 292; Add 232 232 47; Mul 232 232 226; Mul 47 223 4; Mul 292 227 3; Add 47 47 292; Sub 47 47 58;
  Mul 210 210 47; Mul 47 210 14; Mul 292 61 239; Mul 310 235 244; Sub 292 292 310; Add 47 47 292; Mul 73 73 3;
  Mul 292 69 4; Sub 73 73 292; Mul 227 227 210; Mul 235 222 235; Sub 227 227 235; Add 73 73 227; Mul 73 73 5;
  Sub 47 47 73; Mul 69 69 3].
Definition casadi_f4_21 : list instruction := [
  Mul 50 50 4; Sub 69 69 50; Mul 222 222 61; Mul 223 223 210; Sub 222 222 223; Add 69 69 222; Mul 69 69 237;
  Sub 47 47 69; Add 232 232 47; Mul 264 306 264; Mul 252 49 252; Sub 44 44 293; Sub 82 82 296; Sub 123 123 299;
  Sub 116 116 303; Add 123 123 116; Add 82 82 123; Add 44 44 82; Mul 303 58 44; Sub 252 252 303;
  Add 264 264 252; Mul 74 3 74; Mul 238 4 238; Sub 74 74 238; Add 264 264 74; Mul 264 264 4; Mul 117 306 117;
  Mul 245 49 245; Add 55 55 272; Add 54 54 277; Add 57 57 282; Add 173 173 287; Add 57 57 173; Add 54 54 57;
  Add 55 55 54; Mul 287 58 55; Sub 245 245 287; Add 117 117 245; Mul 37 3 37; Mul 248 4 248; Sub 37 37 248;
  Add 117 117 37; Mul 117 117 3; Mul 59 3 59; Mul 98 4 98; Sub 59 59 98; Mul 59 59 2; Mul 80 3 80;
  Mul 175 4 175; Sub 80 80 175; Mul 80 80 243; Add 59 59 80; Add 117 117 59; Sub 264 264 117; Add 232 232 264;
  Mul 232 232 11; Add 270 270 232; Mul 308 306 308; Mul 307 49 307; Mul 55 55 3; Mul 44 44 4; Sub 55 55 44;
  Add 64 64 55; Mul 64 58 64; Sub 307 307 64; Add 308 308 307; Mul 42 3 42; Mul 236 4 236; Sub 42 42 236;
  Add 308 308 42; Mul 308 308 56; Add 270 270 308; Mul 308 306 7; Mul 42 49 294; Mul 236 82 4; Mul 307 54 3;
  Sub 236 236 307; Add 103 103 236; Mul 236 58 103; Sub 42 42 236; Add 308 308 42; Mul 42 3 93; Mul 236 4 246;
  Sub 42 42 236; Add 308 308 42; Mul 308 308 95; Add 270 270 308; Mul 308 306 327; Mul 42 49 325; Mul 236 57 94;
  Mul 307 123 91; Mul 64 316 81; Add 307 307 64; Add 236 236 307; Sub 131 131 236; Mul 236 58 131;
  Sub 42 42 236; Add 308 308 42; Mul 42 3 141; Mul 236 4 65; Sub 42 42 236; Add 308 308 42; Mul 308 308 133;
  Add 270 270 308; Mul 308 306 158; Mul 42 49 330; Mul 236 173 129; Mul 307 116 120; Mul 64 319 119;
  Add 307 307 64; Add 236 236 307; Sub 160 160 236; Mul 236 58 160; Sub 42 42 236; Add 308 308 42; Mul 42 3 326;
  Mul 236 4 89; Sub 42 42 236; Add 308 308 42; Mul 308 308 167; Add 270 270 308; Out 0 2 270; Mul 313 96 313;
  Mul 295 90 295; Sub 313 313 295; Mul 275 323 275; Sub 313 313 275; Mul 178 4 178; Mul 86 3 86; Sub 178 178 86;
  Add 313 313 178; Mul 313 313 8; Mul 234 234 4; Mul 230 230 3; Sub 234 234 230; Mul 230 214 3; Sub 230 230 90;
  Mul 230 169 230; Mul 178 215 230; Mul 86 214 4; Sub 86 86 323; Mul 86 169 86; Mul 275 219 86; Sub 178 178 275;
  Add 234 234 178; Mul 178 234 226; Mul 275 215 4; Mul 295 219 3; Add 275 275 295].
Definition casadi_f4_22 : list instruction := [
  Sub 275 96 275; Mul 169 169 275; Mul 275 169 14; Mul 295 86 239; Mul 270 230 244; Sub 295 295 270;
  Add 275 275 295; Mul 295 106 4; Mul 110 110 3; Sub 295 295 110; Mul 219 219 169; Mul 110 214 230;
  Sub 219 219 110; Add 295 295 219; Mul 219 295 5; Sub 275 275 219; Mul 83 83 4; Mul 106 106 3; Sub 83 83 106;
  Mul 214 214 86; Mul 215 215 169; Sub 214 214 215; Add 83 83 214; Mul 214 83 237; Sub 275 275 214;
  Add 178 178 275; Mul 82 96 82; Mul 309 90 309; Sub 82 82 309; Mul 198 323 198; Sub 82 82 198; Mul 19 4 19;
  Mul 111 3 111; Sub 19 19 111; Add 82 82 19; Mul 19 82 4; Mul 54 96 54; Mul 25 90 25; Sub 54 54 25;
  Mul 16 323 16; Sub 54 54 16; Mul 48 4 48; Mul 249 3 249; Sub 48 48 249; Add 54 54 48; Mul 48 54 3;
  Mul 317 4 317; Mul 85 3 85; Sub 317 317 85; Mul 85 317 2; Mul 135 4 135; Mul 185 3 185; Sub 135 135 185;
  Mul 185 135 243; Add 85 85 185; Add 48 48 85; Sub 19 19 48; Add 178 178 19; Mul 178 178 11; Add 313 313 178;
  Mul 83 83 268; Mul 295 295 218; Mul 169 169 53; Mul 230 230 305; Mul 86 86 43; Add 230 230 86;
  Add 169 169 230; Add 295 295 169; Add 83 83 295; Mul 234 234 291; Sub 83 83 234; Mul 54 54 3; Mul 317 317 49;
  Mul 135 135 306; Add 317 317 135; Mul 102 4 102; Mul 276 3 276; Sub 102 102 276; Mul 102 102 58;
  Sub 317 317 102; Add 54 54 317; Mul 82 82 4; Sub 54 54 82; Add 83 83 54; Mul 83 83 56; Add 313 313 83;
  Mul 103 96 103; Mul 294 90 294; Sub 103 103 294; Mul 7 323 7; Sub 103 103 7; Mul 246 4 246; Mul 93 3 93;
  Sub 246 246 93; Add 103 103 246; Mul 103 103 95; Add 313 313 103; Mul 103 96 131; Mul 246 90 325;
  Sub 103 103 246; Mul 246 323 327; Sub 103 103 246; Mul 246 4 65; Mul 93 3 141; Sub 246 246 93;
  Add 103 103 246; Mul 103 103 133; Add 313 313 103; Mul 103 96 160; Mul 246 90 330; Sub 103 103 246;
  Mul 246 323 158; Sub 103 103 246; Mul 246 4 89; Mul 93 3 326; Sub 246 246 93; Add 103 103 246;
  Mul 103 103 167; Add 313 313 103; Out 0 3 313; Mul 280 324 280; Mul 298 134 298; Mul 316 126 316;
  Add 298 298 316; Add 280 280 298; Mul 128 94 128; Mul 196 91 196; Mul 144 81 144; Add 196 196 144;
  Add 128 128 196; Sub 280 280 128; Mul 280 280 8; Mul 128 207 81; Mul 196 206 94; Sub 128 128 196;
  Sub 128 134 128; Mul 128 278 128; Mul 196 207 128; Mul 144 206 91; Mul 298 211 81; Sub 144 144 298;
  Sub 144 324 144; Mul 144 278 144; Mul 298 211 144; Sub 196 196 298; Mul 298 229 94; Mul 316 13 91;
  Add 298 298 316; Mul 200 200 81].
Definition casadi_f4_23 : list instruction := [
  Add 298 298 200; Sub 196 196 298; Mul 298 196 226; Mul 200 211 94; Mul 316 207 91; Sub 200 200 316;
  Sub 200 126 200; Mul 278 278 200; Mul 200 278 14; Mul 316 144 239; Mul 313 128 244; Sub 316 316 313;
  Add 200 200 316; Mul 211 211 278; Mul 316 206 128; Sub 211 211 316; Mul 147 147 94; Mul 316 145 91;
  Add 147 147 316; Mul 229 229 81; Add 147 147 229; Sub 211 211 147; Mul 147 211 5; Sub 200 200 147;
  Mul 206 206 144; Mul 207 207 278; Sub 206 206 207; Mul 145 145 94; Mul 127 127 91; Add 145 145 127;
  Mul 13 13 81; Add 145 145 13; Sub 206 206 145; Mul 145 206 237; Sub 200 200 145; Add 298 298 200;
  Mul 154 324 154; Mul 312 134 312; Mul 123 126 123; Add 312 312 123; Add 154 154 312; Mul 155 94 155;
  Mul 62 91 62; Mul 149 81 149; Add 62 62 149; Add 155 155 62; Sub 154 154 155; Mul 155 154 4; Mul 118 94 118;
  Mul 318 91 318; Mul 300 81 300; Add 318 318 300; Add 118 118 318; Mul 318 118 2; Mul 314 94 314;
  Mul 256 91 256; Mul 283 81 283; Add 256 256 283; Add 314 314 256; Mul 256 314 243; Add 318 318 256;
  Mul 40 324 40; Mul 195 134 195; Mul 57 126 57; Add 195 195 57; Add 40 40 195; Mul 78 94 78; Mul 88 91 88;
  Mul 257 81 257; Add 88 88 257; Add 78 78 88; Sub 40 40 78; Mul 78 40 3; Sub 318 318 78; Add 155 155 318;
  Add 298 298 155; Mul 298 298 11; Add 280 280 298; Mul 298 206 268; Mul 155 211 218; Mul 318 278 53;
  Mul 78 128 305; Mul 88 144 43; Add 78 78 88; Add 318 318 78; Add 155 155 318; Add 298 298 155;
  Mul 155 196 291; Sub 298 298 155; Mul 155 40 3; Mul 281 94 281; Mul 140 91 140; Mul 320 81 320;
  Add 140 140 320; Add 281 281 140; Mul 140 281 58; Mul 320 118 49; Mul 318 314 306; Add 320 320 318;
  Sub 140 140 320; Add 155 155 140; Mul 140 154 4; Sub 155 155 140; Add 298 298 155; Mul 298 298 56;
  Add 280 280 298; Mul 196 196 22; Mul 278 278 101; Mul 144 144 87; Mul 128 128 322; Sub 144 144 128;
  Add 278 278 144; Mul 211 211 273; Sub 278 278 211; Mul 206 206 45; Sub 278 278 206; Add 196 196 278;
  Mul 154 154 4; Mul 118 118 90; Mul 314 314 323; Add 118 118 314; Mul 281 281 96; Sub 118 118 281; Mul 40 40 3;
  Sub 118 118 40; Add 154 154 118; Add 196 196 154; Mul 196 196 95; Add 280 280 196; Mul 327 324 327;
  Mul 325 134 325; Mul 131 126 131; Add 325 325 131; Add 327 327 325; Mul 141 94 141; Mul 65 91 65;
  Mul 321 81 321; Add 65 65 321; Add 141 141 65; Sub 327 327 141; Mul 327 327 133; Add 280 280 327;
  Mul 327 324 158; Mul 141 134 330; Mul 65 126 160; Add 141 141 65; Add 327 327 141; Mul 141 94 326;
  Mul 65 91 89].
Definition casadi_f4_24 : list instruction := [
  Mul 321 81 41; Add 65 65 321; Add 141 141 65; Sub 327 327 141; Mul 327 327 167; Add 280 280 327; Out 0 4 280;
  Mul 285 331 285; Mul 301 52 301; Mul 280 165 319; Add 301 301 280; Add 285 285 301; Mul 161 129 161;
  Mul 150 120 150; Mul 174 119 174; Add 150 150 174; Add 161 161 150; Sub 285 285 161; Mul 8 285 8;
  Mul 161 172 119; Mul 150 157 129; Sub 161 161 150; Sub 161 52 161; Mul 161 138 161; Mul 150 172 161;
  Mul 174 157 120; Mul 301 159 119; Sub 174 174 301; Sub 174 331 174; Mul 174 138 174; Mul 301 159 174;
  Sub 150 150 301; Mul 301 184 129; Mul 280 192 120; Add 301 301 280; Mul 199 199 119; Add 301 301 199;
  Sub 150 150 301; Mul 226 150 226; Mul 301 159 129; Mul 199 172 120; Sub 301 301 199; Sub 301 165 301;
  Mul 138 138 301; Mul 14 138 14; Mul 239 174 239; Mul 244 161 244; Sub 239 239 244; Add 14 14 239;
  Mul 159 159 138; Mul 239 157 161; Sub 159 159 239; Mul 191 191 129; Mul 239 181 120; Add 191 191 239;
  Mul 184 184 119; Add 191 191 184; Sub 159 159 191; Mul 5 159 5; Sub 14 14 5; Mul 157 157 174; Mul 172 172 138;
  Sub 157 157 172; Mul 181 181 129; Mul 163 163 120; Add 181 181 163; Mul 192 192 119; Add 181 181 192;
  Sub 157 157 181; Mul 237 157 237; Sub 14 14 237; Add 226 226 14; Mul 197 331 197; Mul 14 52 315;
  Mul 116 165 116; Add 14 14 116; Add 197 197 14; Mul 193 129 193; Mul 99 120 99; Mul 189 119 189;
  Add 99 99 189; Add 193 193 99; Sub 197 197 193; Mul 193 197 4; Mul 176 129 176; Mul 315 120 315;
  Mul 304 119 304; Add 315 315 304; Add 176 176 315; Mul 2 176 2; Mul 315 129 311; Mul 182 120 182;
  Mul 288 119 288; Add 182 182 288; Add 315 315 182; Mul 243 315 243; Add 2 2 243; Mul 311 331 311;
  Mul 266 52 266; Mul 173 165 173; Add 266 266 173; Add 311 311 266; Mul 115 129 115; Mul 122 120 122;
  Mul 261 119 261; Add 122 122 261; Add 115 115 122; Sub 311 311 115; Mul 115 311 3; Sub 2 2 115; Add 193 193 2;
  Add 226 226 193; Mul 226 226 11; Add 8 8 226; Mul 268 157 268; Mul 218 159 218; Mul 53 138 53;
  Mul 305 161 305; Mul 43 174 43; Add 305 305 43; Add 53 53 305; Add 218 218 53; Add 268 268 218;
  Mul 291 150 291; Sub 268 268 291; Mul 291 311 3; Mul 286 129 286; Mul 180 120 180; Mul 319 119 319;
  Add 180 180 319; Add 286 286 180; Mul 58 286 58; Mul 49 176 49; Mul 306 315 306; Add 49 49 306; Sub 58 58 49;
  Add 291 291 58; Mul 58 197 4; Sub 291 291 58; Add 268 268 291; Mul 268 268 56; Add 8 8 268; Mul 22 150 22;
  Mul 101 138 101; Mul 87 174 87; Mul 322 161 322; Sub 87 87 322; Add 101 101 87; Mul 273 159 273].
Definition casadi_f4_25 : list instruction := [
  Sub 101 101 273; Mul 45 157 45; Sub 101 101 45; Add 22 22 101; Mul 4 197 4; Mul 90 176 90; Mul 323 315 323;
  Add 90 90 323; Mul 96 286 96; Sub 90 90 96; Mul 3 311 3; Sub 90 90 3; Add 4 4 90; Add 22 22 4; Mul 22 22 95;
  Add 8 8 22; Mul 150 150 253; Mul 157 157 108; Mul 159 159 203; Mul 138 138 125; Mul 161 161 297;
  Mul 174 174 124; Add 161 161 174; Add 138 138 161; Add 159 159 138; Add 157 157 159; Add 150 150 157;
  Mul 285 285 81; Mul 197 197 91; Mul 311 311 94; Mul 286 286 126; Mul 176 176 134; Mul 315 315 324;
  Add 176 176 315; Add 286 286 176; Add 311 311 286; Add 197 197 311; Add 285 285 197; Sub 150 150 285;
  Mul 150 150 133; Add 8 8 150; Mul 331 331 158; Mul 52 52 330; Mul 165 165 160; Add 52 52 165; Add 331 331 52;
  Mul 129 129 326; Mul 120 120 89; Mul 119 119 41; Add 120 120 119; Add 129 129 120; Sub 331 331 129;
  Mul 331 331 167; Add 8 8 331; Out 0 5 8].
Definition casadi_f4 : casadi_function := {| f_locals := casadi_f4_locals; f_code := 
  casadi_f4_1 ++ casadi_f4_2 ++ casadi_f4_3 ++ casadi_f4_4 ++ casadi_f4_5 ++ casadi_f4_6 ++ casadi_f4_7 ++
  casadi_f4_8 ++ casadi_f4_9 ++ casadi_f4_10 ++ casadi_f4_11 ++ casadi_f4_12 ++ casadi_f4_13 ++ casadi_f4_14 ++
  casadi_f4_15 ++ casadi_f4_16 ++ casadi_f4_17 ++ casadi_f4_18 ++ casadi_f4_19 ++ casadi_f4_20 ++
  casadi_f4_21 ++ casadi_f4_22 ++ casadi_f4_23 ++ casadi_f4_24 ++ casadi_f4_25 |}.
Definition casadi_coriolis : casadi_function * casadi_interface := (casadi_f4, {|
  f_name_in := ["i0"; "i1"]; f_name_out := ["o0"]; f_sparsity_in := [casadi_s0; casadi_s0]; f_sparsity_out := [casadi_s0];
  f_n_in := 2; f_n_out := 1; f_work := (2, 1, 0, 0)%nat |}).

(** ** [casadi_gravity]: [casadi_f5] *)

Definition casadi_f5_locals : N := 48.
Definition casadi_f5_1 : list instruction := [
  Lit 0 (-56369999999999997) 21; Lit 1 53445673999999999 17; Arg 2 0 0; Sin 3 2; Arg 4 1 0; Mul 5 3 4; Cos 2 2;
  Arg 6 1 1; Mul 7 2 6; Sub 5 5 7; Mul 7 1 5; Mul 0 0 7; Lit 7 14535500000000001 19; Mul 2 2 4; Mul 3 3 6;
  Add 2 2 3; Mul 1 1 2; Mul 7 7 1; Add 0 0 7; Arg 7 0 1; Cos 1 7; Lit 3 (-14104253) 8;
  Lit 6 77619844000000005 17; Mul 4 6 5; Mul 4 3 4; Lit 8 (-48229800000000001) 19; Sin 7 7; Arg 9 1 2;
  Mul 10 7 9; Mul 11 1 2; Sub 10 10 11; Mul 11 6 10; Mul 11 8 11; Sub 4 4 11; Arg 11 0 2; Sin 12 11; Arg 13 0 3;
  Cos 14 13; Lit 15 104537160417653 17; Lit 16 47384665999999998 17; Sin 13 13; Cos 11 11; Mul 17 11 10;
  Mul 2 7 2; Mul 9 1 9; Add 2 2 9; Mul 9 12 2; Sub 17 17 9; Mul 9 13 17; Mul 10 12 10; Mul 18 11 2;
  Add 10 10 18; Mul 18 14 10; Sub 9 9 18; Mul 18 16 9; Mul 19 15 18; Lit 20 37000000394383802 18; Mul 21 16 5;
  Mul 22 20 21; Sub 19 19 22; Arg 22 0 4; Cos 23 22; Lit 24 (-49119999999999984) 21;
  Lit 25 37429752999999999 17; Mul 26 25 9; Mul 27 24 26; Lit 28 (-31543689999999985) 18; Sin 22 22;
  Mul 29 14 17; Mul 30 13 10; Add 29 29 30; Mul 30 22 29; Mul 31 23 5; Add 30 30 31; Mul 31 25 30; Mul 32 28 31;
  Sub 27 27 32; Lit 32 96069999999999993 21; Lit 33 80521113 8; Arg 34 0 5; Sin 35 34; Mul 36 35 30; Cos 34 34;
  Mul 37 34 9; Add 36 36 37; Mul 36 33 36; Mul 37 32 36; Lit 38 (-19297299999999999) 19; Mul 30 34 30;
  Mul 9 35 9; Sub 30 30 9; Mul 30 33 30; Mul 9 38 30; Sub 37 37 9; Lit 9 (-78693) 9; Mul 39 34 36; Mul 40 35 30;
  Sub 39 39 40; Mul 40 9 39; Lit 41 (-34077999999999997) 18; Mul 42 34 30; Mul 43 35 36; Add 42 42 43;
  Mul 43 41 42; Sub 40 40 43; Add 40 37 40; Add 27 27 40; Mul 40 23 27; Mul 43 23 29; Mul 44 22 5; Sub 43 43 44;
  Mul 25 25 43; Mul 28 28 25; Lit 44 35419999999999991 19; Mul 45 44 26; Sub 28 28 45; Mul 33 33 43;
  Mul 38 38 33; Lit 43 (-94756709999999994) 18; Mul 36 43 36; Sub 38 38 36; Mul 36 34 38; Mul 43 43 30;
  Mul 32 32 33; Sub 43 43 32; Mul 32 35 43; Add 36 36 32; Mul 41 41 33; Lit 32 18848000000000001 17;
  Mul 30 32 39; Sub 41 41 30; Add 36 36 41; Add 28 28 36; Mul 36 22 28; Add 40 40 36;
  Lit 36 26250000000000002 19; Add 26 26 39; Mul 39 36 26; Lit 41 41000000000000002 18; Add 30 31 42;
  Mul 45 23 30; Add 46 25 33; Mul 47 22 46; Sub 45 45 47; Mul 47 41 45; Sub 39 39 47; Add 40 40 39;
  Add 19 19 40; Mul 40 14 19].
Definition casadi_f5_2 : list instruction := [
  Lit 39 35766769331050302 18; Mul 47 39 21; Mul 16 16 29; Mul 15 15 16; Sub 47 47 15; Mul 44 44 31;
  Mul 24 24 25; Sub 44 44 24; Mul 34 34 43; Mul 35 35 38; Sub 34 34 35; Mul 32 32 42; Mul 9 9 33; Sub 32 32 9;
  Add 34 34 32; Add 44 44 34; Lit 34 62758999999999995 18; Mul 32 34 45; Mul 46 23 46; Mul 30 22 30;
  Add 46 46 30; Mul 36 36 46; Sub 32 32 36; Add 32 44 32; Add 47 47 32; Mul 32 13 47; Add 40 40 32;
  Lit 32 528 4; Add 21 21 45; Mul 45 32 21; Sub 40 40 45; Lit 45 40138699999999984 19; Lit 36 118070539 8;
  Mul 10 36 10; Mul 30 45 10; Lit 9 32500479999999984 18; Mul 5 36 5; Mul 33 9 5; Add 30 30 33; Sub 40 40 30;
  Mul 30 12 40; Lit 33 11056122999999997 17; Mul 42 33 5; Mul 36 36 17; Mul 45 45 36; Sub 42 42 45;
  Mul 47 14 47; Mul 19 13 19; Sub 47 47 19; Lit 19 24818000000000001 17; Mul 45 19 21; Add 47 47 45;
  Add 42 42 47; Mul 47 11 42; Add 30 30 47; Lit 47 (-28499999999999998) 17; Add 5 5 21; Mul 5 47 5;
  Lit 21 (-26250000000000002) 19; Add 45 16 46; Mul 17 14 45; Add 35 18 26; Mul 38 13 35; Add 17 17 38;
  Add 38 36 17; Mul 43 11 38; Mul 14 14 35; Mul 13 13 45; Sub 14 14 13; Sub 13 14 10; Mul 45 12 13;
  Sub 43 43 45; Mul 43 21 43; Sub 5 5 43; Add 30 30 5; Add 4 4 30; Mul 1 1 4; Mul 40 11 40; Mul 42 12 42;
  Sub 40 40 42; Mul 12 12 38; Mul 11 11 13; Add 12 12 11; Mul 21 21 12; Add 40 40 21; Mul 6 6 2; Mul 8 8 6;
  Sub 40 40 8; Mul 7 7 40; Sub 1 1 7; Add 0 0 1; Out 0 0 0; Mul 3 3 6; Mul 9 9 36; Mul 33 33 10; Add 9 9 33;
  Mul 20 20 16; Mul 39 39 18; Sub 20 20 39; Mul 23 23 28; Mul 22 22 27; Sub 23 23 22; Mul 41 41 46;
  Mul 34 34 26; Sub 41 41 34; Add 23 23 41; Add 20 20 23; Mul 32 32 17; Mul 19 19 14; Sub 32 32 19;
  Add 32 20 32; Add 9 9 32; Mul 47 47 12; Sub 47 9 47; Add 3 3 47; Out 0 1 3; Neg 9 9; Out 0 2 9; Out 0 3 20;
  Neg 44 44; Out 0 4 44; Neg 37 37; Out 0 5 37].
Definition casadi_f5 : casadi_function := {| f_locals := casadi_f5_locals; f_code := 
  casadi_f5_1 ++ casadi_f5_2 |}.
Definition casadi_gravity : casadi_function * casadi_interface := (casadi_f5, {|
  f_name_in := ["i0"; "i1"]; f_name_out := ["o0"]; f_sparsity_in := [casadi_s0; casadi_s3]; f_sparsity_out := [casadi_s0];
  f_n_in := 2; f_n_out := 1; f_work := (2, 1, 0, 0)%nat |}).

(** ** [casadi_pose_1]: [casadi_f6] *)

Definition casadi_f6_locals : N := 3.
Definition casadi_f6_code : list instruction := [
  Arg 0 0 0; Cos 1 0; Out 0 0 1; Sin 0 0; Out 0 1 0; Lit 2 0 0; Out 0 2 2; Out 0 3 2; Neg 0 0; Out 0 4 0;
  Out 0 5 1; Out 0 6 2; Out 0 7 2; Out 0 8 2; Out 0 9 2; Lit 1 1 0; Out 0 10 1; Out 0 11 2; Out 0 12 2;
  Out 0 13 2; Lit 2 96750000000000003 18; Out 0 14 2; Out 0 15 1].
Definition casadi_f6 : casadi_function := {| f_locals := casadi_f6_locals; f_code := casadi_f6_code |}.
Definition casadi_pose_1 : casadi_function * casadi_interface := (casadi_f6, {|
  f_name_in := ["i0"]; f_name_out := ["o0"]; f_sparsity_in := [casadi_s0]; f_sparsity_out := [casadi_s1];
  f_n_in := 1; f_n_out := 1; f_work := (1, 1, 0, 0)%nat |}).

(** ** [casadi_pose_2]: [casadi_f7] *)

Definition casadi_f7_locals : N := 6.
Definition casadi_f7_code : list instruction := [
  Arg 0 0 0; Cos 1 0; Arg 2 0 1; Cos 3 2; Mul 4 1 3; Out 0 0 4; Sin 0 0; Mul 4 0 3; Out 0 1 4; Sin 2 2; Neg 4 2;
  Out 0 2 4; Lit 4 0 0; Out 0 3 4; Neg 5 0; Out 0 4 5; Out 0 5 1; Out 0 6 4; Out 0 7 4; Mul 1 1 2; Out 0 8 1;
  Mul 0 0 2; Out 0 9 0; Out 0 10 3; Out 0 11 4; Out 0 12 4; Out 0 13 4; Lit 4 14324999999999999 17; Out 0 14 4;
  Lit 4 1 0; Out 0 15 4].
Definition casadi_f7 : casadi_function := {| f_locals := casadi_f7_locals; f_code := casadi_f7_code |}.
Definition casadi_pose_2 : casadi_function * casadi_interface := (casadi_f7, {|
  f_name_in := ["i0"]; f_name_out := ["o0"]; f_sparsity_in := [casadi_s0]; f_sparsity_out := [casadi_s1];
  f_n_in := 1; f_n_out := 1; f_work := (1, 1, 0, 0)%nat |}).

(** ** [casadi_pose_3]: [casadi_f8] *)

Definition casadi_f8_locals : N := 12.
Definition casadi_f8_code : list instruction := [
  Arg 0 0 0; Cos 1 0; Arg 2 0 1; Cos 3 2; Mul 4 1 3; Arg 5 0 2; Cos 6 5; Mul 7 4 6; Sin 2 2; Mul 8 1 2; Sin 5 5;
  Mul 9 8 5; Add 7 7 9; Out 0 0 7; Sin 0 0; Mul 7 0 3; Mul 9 7 6; Mul 10 0 2; Mul 11 10 5; Add 9 9 11;
  Out 0 1 9; Mul 9 3 5; Mul 11 2 6; Sub 9 9 11; Out 0 2 9; Lit 9 0 0; Out 0 3 9; Neg 11 0; Out 0 4 11;
  Out 0 5 1; Out 0 6 9; Out 0 7 9; Mul 8 8 6; Mul 11 4 5; Sub 8 8 11; Out 0 8 8; Mul 10 10 6; Mul 8 7 5;
  Sub 10 10 8; Out 0 9 10; Mul 5 2 5; Mul 3 3 6; Add 5 5 3; Out 0 10 5; Out 0 11 9;
  Lit 9 (-28499999999999998) 17; Mul 4 9 4; Lit 5 (-26250000000000002) 19; Mul 0 5 0; Sub 4 4 0; Out 0 12 4;
  Mul 7 9 7; Mul 5 5 1; Add 7 7 5; Out 0 13 7; Lit 7 14324999999999999 17; Mul 9 9 2; Sub 7 7 9; Out 0 14 7;
  Lit 7 1 0; Out 0 15 7].
Definition casadi_f8 : casadi_function := {| f_locals := casadi_f8_locals; f_code := casadi_f8_code |}.
Definition casadi_pose_3 : casadi_function * casadi_interface := (casadi_f8, {|
  f_name_in := ["i0"]; f_name_out := ["o0"]; f_sparsity_in := [casadi_s0]; f_sparsity_out := [casadi_s1];
  f_n_in := 1; f_n_out := 1; f_work := (1, 1, 0, 0)%nat |}).

(** ** [casadi_pose_4]: [casadi_f9] *)

Definition casadi_f9_locals : N := 16.
Definition casadi_f9_code : list instruction := [
  Arg 0 0 0; Cos 1 0; Arg 2 0 1; Cos 3 2; Mul 4 1 3; Arg 5 0 2; Cos 6 5; Mul 7 4 6; Sin 2 2; Mul 8 1 2; Sin 5 5;
  Mul 9 8 5; Add 7 7 9; Arg 9 0 3; Cos 10 9; Mul 11 7 10; Mul 8 8 6; Mul 12 4 5; Sub 8 8 12; Sin 9 9;
  Mul 12 8 9; Sub 11 11 12; Out 0 0 11; Sin 0 0; Mul 11 0 3; Mul 12 11 6; Mul 13 0 2; Mul 14 13 5; Add 12 12 14;
  Mul 14 12 10; Mul 13 13 6; Mul 15 11 5; Sub 13 13 15; Mul 15 13 9; Sub 14 14 15; Out 0 1 14; Mul 14 3 5;
  Mul 15 2 6; Sub 14 14 15; Mul 15 14 10; Mul 5 2 5; Mul 3 3 6; Add 5 5 3; Mul 3 5 9; Sub 15 15 3; Out 0 2 15;
  Lit 15 0 0; Out 0 3 15; Neg 3 0; Out 0 4 3; Out 0 5 1; Out 0 6 15; Out 0 7 15; Mul 3 7 9; Mul 6 8 10;
  Add 3 3 6; Out 0 8 3; Mul 3 12 9; Mul 6 13 10; Add 3 3 6; Out 0 9 3; Mul 9 14 9; Mul 10 5 10; Add 9 9 10;
  Out 0 10 9; Out 0 11 15; Lit 15 (-28499999999999998) 17; Mul 4 15 4; Lit 9 (-26250000000000002) 19; Mul 0 9 0;
  Sub 4 4 0; Lit 0 24818000000000001 17; Mul 7 0 7; Lit 10 528 4; Mul 8 10 8; Add 7 7 8; Add 4 4 7; Out 0 12 4;
  Mul 11 15 11; Mul 9 9 1; Add 11 11 9; Mul 12 0 12; Mul 13 10 13; Add 12 12 13; Add 11 11 12; Out 0 13 11;
  Lit 11 14324999999999999 17; Mul 15 15 2; Sub 11 11 15; Mul 0 0 14; Mul 10 10 5; Add 0 0 10; Add 11 11 0;
  Out 0 14 11; Lit 11 1 0; Out 0 15 11].
Definition casadi_f9 : casadi_function := {| f_locals := casadi_f9_locals; f_code := casadi_f9_code |}.
Definition casadi_pose_4 : casadi_function * casadi_interface := (casadi_f9, {|
  f_name_in := ["i0"]; f_name_out := ["o0"]; f_sparsity_in := [casadi_s0]; f_sparsity_out := [casadi_s1];
  f_n_in := 1; f_n_out := 1; f_work := (1, 1, 0, 0)%nat |}).

(** ** [casadi_pose_5]: [casadi_f10] *)

Definition casadi_f10_locals : N := 22.
Definition casadi_f10_code : list instruction := [
  Arg 0 0 0; Cos 1 0; Arg 2 0 1; Cos 3 2; Mul 4 1 3; Arg 5 0 2; Cos 6 5; Mul 7 4 6; Sin 2 2; Mul 8 1 2; Sin 5 5;
  Mul 9 8 5; Add 7 7 9; Arg 9 0 3; Cos 10 9; Mul 11 7 10; Mul 8 8 6; Mul 12 4 5; Sub 8 8 12; Sin 9 9;
  Mul 12 8 9; Sub 11 11 12; Arg 12 0 4; Cos 13 12; Mul 14 11 13; Sin 0 0; Sin 12 12; Mul 15 0 12; Add 14 14 15;
  Out 0 0 14; Mul 14 0 3; Mul 15 14 6; Mul 16 0 2; Mul 17 16 5; Add 15 15 17; Mul 17 15 10; Mul 16 16 6;
  Mul 18 14 5; Sub 16 16 18; Mul 18 16 9; Sub 17 17 18; Mul 18 17 13; Mul 19 1 12; Sub 18 18 19; Out 0 1 18;
  Mul 18 3 5; Mul 19 2 6; Sub 18 18 19; Mul 19 18 10; Mul 5 2 5; Mul 3 3 6; Add 5 5 3; Mul 3 5 9; Sub 19 19 3;
  Mul 3 19 13; Out 0 2 3; Lit 3 0 0; Out 0 3 3; Mul 6 11 12; Mul 20 0 13; Sub 6 6 20; Out 0 4 6; Mul 6 17 12;
  Mul 13 1 13; Add 6 6 13; Out 0 5 6; Mul 12 19 12; Out 0 6 12; Out 0 7 3; Mul 12 7 9; Mul 6 8 10; Add 12 12 6;
  Out 0 8 12; Mul 6 15 9; Mul 13 16 10; Add 6 6 13; Out 0 9 6; Mul 9 18 9; Mul 10 5 10; Add 9 9 10; Out 0 10 9;
  Out 0 11 3; Lit 3 (-28499999999999998) 17; Mul 4 3 4; Lit 10 (-26250000000000002) 19; Mul 13 10 0; Sub 4 4 13;
  Lit 13 24818000000000001 17; Mul 7 13 7; Lit 20 528 4; Mul 8 20 8; Add 7 7 8; Add 4 4 7;
  Lit 7 62758999999999995 18; Mul 11 7 11; Lit 8 41000000000000002 18; Mul 12 8 12; Lit 21 26250000000000002 19;
  Mul 0 21 0; Sub 12 12 0; Add 11 11 12; Add 4 4 11; Out 0 12 4; Mul 14 3 14; Mul 10 10 1; Add 14 14 10;
  Mul 15 13 15; Mul 16 20 16; Add 15 15 16; Add 14 14 15; Mul 17 7 17; Mul 21 21 1; Mul 6 8 6; Add 21 21 6;
  Add 17 17 21; Add 14 14 17; Out 0 13 14; Lit 14 14324999999999999 17; Mul 3 3 2; Sub 14 14 3; Mul 13 13 18;
  Mul 20 20 5; Add 13 13 20; Add 14 14 13; Mul 7 7 19; Mul 8 8 9; Add 7 7 8; Add 14 14 7; Out 0 14 14;
  Lit 14 1 0; Out 0 15 14].
Definition casadi_f10 : casadi_function := {| f_locals := casadi_f10_locals; f_code := casadi_f10_code |}.
Definition casadi_pose_5 : casadi_function * casadi_interface := (casadi_f10, {|
  f_name_in := ["i0"]; f_name_out := ["o0"]; f_sparsity_in := [casadi_s0]; f_sparsity_out := [casadi_s1];
  f_n_in := 1; f_n_out := 1; f_work := (1, 1, 0, 0)%nat |}).

(** ** [casadi_pose_6]: [casadi_f11] *)

Definition casadi_f11_locals : N := 29.
Definition casadi_f11_1 : list instruction := [
  Arg 0 0 0; Cos 1 0; Arg 2 0 1; Cos 3 2; Mul 4 1 3; Arg 5 0 2; Cos 6 5; Mul 7 4 6; Sin 2 2; Mul 8 1 2; Sin 5 5;
  Mul 9 8 5; Add 7 7 9; Arg 9 0 3; Cos 10 9; Mul 11 7 10; Mul 8 8 6; Mul 12 4 5; Sub 8 8 12; Sin 9 9;
  Mul 12 8 9; Sub 11 11 12; Arg 12 0 4; Cos 13 12; Mul 14 11 13; Sin 0 0; Sin 12 12; Mul 15 0 12; Add 14 14 15;
  Out 0 0 14; Mul 15 0 3; Mul 16 15 6; Mul 17 0 2; Mul 18 17 5; Add 16 16 18; Mul 18 16 10; Mul 17 17 6;
  Mul 19 15 5; Sub 17 17 19; Mul 19 17 9; Sub 18 18 19; Mul 19 18 13; Mul 20 1 12; Sub 19 19 20; Out 0 1 19;
  Mul 20 3 5; Mul 21 2 6; Sub 20 20 21; Mul 21 20 10; Mul 5 2 5; Mul 3 3 6; Add 5 5 3; Mul 3 5 9; Sub 21 21 3;
  Mul 3 21 13; Out 0 2 3; Lit 6 0 0; Out 0 3 6; Mul 22 11 12; Mul 23 0 13; Sub 22 22 23; Arg 23 0 5; Cos 24 23;
  Mul 25 22 24; Mul 26 7 9; Mul 27 8 10; Add 26 26 27; Sin 23 23; Mul 27 26 23; Sub 25 25 27; Out 0 4 25;
  Mul 25 18 12; Mul 13 1 13; Add 25 25 13; Mul 13 25 24; Mul 27 16 9; Mul 28 17 10; Add 27 27 28; Mul 28 27 23;
  Sub 13 13 28; Out 0 5 13; Mul 12 21 12; Mul 13 12 24; Mul 9 20 9; Mul 10 5 10; Add 9 9 10; Mul 10 9 23;
  Sub 13 13 10; Out 0 6 13; Out 0 7 6; Mul 13 22 23; Mul 10 26 24; Add 13 13 10; Out 0 8 13; Mul 13 25 23;
  Mul 10 27 24; Add 13 13 10; Out 0 9 13; Mul 23 12 23; Mul 24 9 24; Add 23 23 24; Out 0 10 23; Out 0 11 6;
  Lit 6 (-28499999999999998) 17; Mul 4 6 4; Lit 23 (-26250000000000002) 19; Mul 24 23 0; Sub 4 4 24;
  Lit 24 24818000000000001 17; Mul 7 24 7; Lit 13 528 4; Mul 8 13 8; Add 7 7 8; Add 4 4 7;
  Lit 7 62758999999999995 18; Mul 11 7 11; Lit 8 41000000000000002 18; Mul 10 8 26; Lit 28 26250000000000002 19;
  Mul 0 28 0; Sub 10 10 0; Add 11 11 10; Add 4 4 11; Lit 11 18848000000000001 17; Mul 14 11 14;
  Lit 10 (-78693) 9; Mul 22 10 22; Lit 0 (-34077999999999997) 18; Mul 26 0 26; Add 22 22 26; Add 14 14 22;
  Add 4 4 14; Out 0 12 4; Mul 15 6 15; Mul 23 23 1; Add 15 15 23; Mul 16 24 16; Mul 17 13 17; Add 16 16 17;
  Add 15 15 16; Mul 18 7 18; Mul 28 28 1; Mul 1 8 27; Add 28 28 1; Add 18 18 28; Add 15 15 18; Mul 19 11 19;
  Mul 25 10 25; Mul 27 0 27].
Definition casadi_f11_2 : list instruction := [
  Add 25 25 27; Add 19 19 25; Add 15 15 19; Out 0 13 15; Lit 15 14324999999999999 17; Mul 6 6 2; Sub 15 15 6;
  Mul 24 24 20; Mul 13 13 5; Add 24 24 13; Add 15 15 24; Mul 7 7 21; Mul 8 8 9; Add 7 7 8; Add 15 15 7;
  Mul 11 11 3; Mul 10 10 12; Mul 0 0 9; Add 10 10 0; Add 11 11 10; Add 15 15 11; Out 0 14 15; Lit 15 1 0;
  Out 0 15 15].
Definition casadi_f11 : casadi_function := {| f_locals := casadi_f11_locals; f_code := 
  casadi_f11_1 ++ casadi_f11_2 |}.
Definition casadi_pose_6 : casadi_function * casadi_interface := (casadi_f11, {|
  f_name_in := ["i0"]; f_name_out := ["o0"]; f_sparsity_in := [casadi_s0]; f_sparsity_out := [casadi_s1];
  f_n_in := 1; f_n_out := 1; f_work := (1, 1, 0, 0)%nat |}).

Definition willow : generated := {|
  g_fk := casadi_fk; g_zero_jacobian := casadi_zero_jacobian; g_body_jacobian := casadi_body_jacobian;
  g_mass := casadi_mass; g_coriolis := casadi_coriolis; g_gravity := casadi_gravity;
  g_pose := [casadi_pose_1; casadi_pose_2; casadi_pose_3; casadi_pose_4; casadi_pose_5; casadi_pose_6] |}.
