(* ===== verification/PantheraTraits.v ===== *)
(** * The generated functions of the Panthera arm

    src/include/florid/traits/PantheraTraits.hpp, generated by CasADi: the twelve
    functions and their interfaces.  A function of more than 150 lines is split.
    The [alloc_mem], [checkout], [incref] and other such functions do nothing. *)

From stdpp Require Import strings.
From S2P Require Import Prelude Casadi.

#[local] Open Scope string_scope.
#[local] Open Scope list_scope.

Definition casadi_s0 : list Z := [6; 1; 1].
Definition casadi_s1 : list Z := [4; 4; 1].
Definition casadi_s2 : list Z := [6; 6; 1].
Definition casadi_s3 : list Z := [3; 1; 1].

(** ** [casadi_fk]: [casadi_f0] *)

Definition casadi_f0_locals : N := 29.
Definition casadi_f0_1 : list instruction := [
  Arg 0 0 0; Cos 1 0; Arg 2 0 1; Cos 3 2; Mul 4 1 3; Arg 5 0 2; Cos 6 5; Mul 7 4 6; Sin 2 2; Mul 8 1 2; Sin 5 5;
  Mul 9 8 5; Add 7 7 9; Arg 9 0 3; Cos 10 9; Mul 11 7 10; Mul 8 8 6; Mul 12 4 5; Sub 8 8 12; Sin 9 9;
  Mul 12 8 9; Add 11 11 12; Arg 12 0 4; Cos 13 12; Mul 14 11 13; Sin 0 0; Sin 12 12; Mul 15 0 12; Add 14 14 15;
  Out 0 0 14; Mul 15 0 3; Mul 16 15 6; Mul 17 0 2; Mul 18 17 5; Add 16 16 18; Mul 18 16 10; Mul 17 17 6;
  Mul 19 15 5; Sub 17 17 19; Mul 19 17 9; Add 18 18 19; Mul 19 18 13; Mul 20 1 12; Sub 19 19 20; Out 0 1 19;
  Mul 20 3 5; Mul 21 2 6; Sub 20 20 21; Mul 21 20 10; Mul 5 2 5; Mul 3 3 6; Add 5 5 3; Mul 3 5 9; Add 21 21 3;
  Mul 3 21 13; Out 0 2 3; Lit 6 0 0; Out 0 3 6; Mul 22 11 12; Mul 23 0 13; Sub 22 22 23; Arg 23 0 5; Cos 24 23;
  Mul 25 22 24; Mul 26 8 10; Mul 27 7 9; Sub 26 26 27; Sin 23 23; Mul 27 26 23; Add 25 25 27; Out 0 4 25;
  Mul 25 18 12; Mul 13 1 13; Add 25 25 13; Mul 13 25 24; Mul 27 17 10; Mul 28 16 9; Sub 27 27 28; Mul 28 27 23;
  Add 13 13 28; Out 0 5 13; Mul 12 21 12; Mul 13 12 24; Mul 10 5 10; Mul 9 20 9; Sub 10 10 9; Mul 9 10 23;
  Add 13 13 9; Out 0 6 13; Out 0 7 6; Mul 13 26 24; Mul 22 22 23; Sub 13 13 22; Out 0 8 13; Mul 13 27 24;
  Mul 25 25 23; Sub 13 13 25; Out 0 9 13; Mul 24 10 24; Mul 12 12 23; Sub 24 24 12; Out 0 10 24; Out 0 11 6;
  Lit 6 18199 6; Mul 1 6 1; Lit 24 (-26000000000000001) 17; Mul 4 24 4; Add 1 1 4; Lit 4 23000000000000001 17;
  Mul 7 4 7; Lit 12 59999999999999998 18; Mul 8 12 8; Add 7 7 8; Add 1 1 7; Lit 7 70000000000000007 18;
  Mul 11 7 11; Lit 8 (-43609) 7; Mul 26 8 26; Add 11 11 26; Add 1 1 11; Lit 11 15440000000000001 17;
  Mul 14 11 14; Add 1 1 14; Out 0 12 1; Mul 6 6 0; Mul 15 24 15; Add 6 6 15; Mul 16 4 16; Mul 17 12 17;
  Add 16 16 17; Add 6 6 16; Mul 18 7 18; Mul 27 8 27; Add 18 18 27; Add 6 6 18; Mul 19 11 19; Add 6 6 19;
  Out 0 13 6; Lit 6 10200000000000001 17; Mul 24 24 2; Sub 6 6 24; Mul 4 4 20; Mul 12 12 5; Add 4 4 12;
  Add 6 6 4; Mul 7 7 21; Mul 8 8 10; Add 7 7 8; Add 6 6 7].
Definition casadi_f0_2 : list instruction := [
  Mul 11 11 3; Add 6 6 11; Out 0 14 6; Lit 6 1 0; Out 0 15 6].
Definition casadi_f0 : casadi_function := {| f_locals := casadi_f0_locals; f_code := 
  casadi_f0_1 ++ casadi_f0_2 |}.
Definition casadi_fk : casadi_function * casadi_interface := (casadi_f0, {|
  f_name_in := ["i0"]; f_name_out := ["o0"]; f_sparsity_in := [casadi_s0]; f_sparsity_out := [casadi_s1];
  f_n_in := 1; f_n_out := 1; f_work := (1, 1, 0, 0)%nat |}).

(** ** [casadi_zero_jacobian]: [casadi_f1] *)

Definition casadi_f1_locals : N := 34.
Definition casadi_f1_1 : list instruction := [
  Lit 0 18199 6; Arg 1 0 0; Sin 2 1; Mul 3 0 2; Lit 4 (-26000000000000001) 17; Arg 5 0 1; Cos 6 5; Mul 7 2 6;
  Mul 8 4 7; Add 8 3 8; Lit 9 23000000000000001 17; Arg 10 0 2; Cos 11 10; Mul 12 7 11; Sin 5 5; Mul 13 2 5;
  Sin 10 10; Mul 14 13 10; Add 12 12 14; Mul 14 9 12; Lit 15 59999999999999998 18; Mul 13 13 11; Mul 7 7 10;
  Sub 13 13 7; Mul 7 15 13; Add 14 14 7; Add 14 8 14; Lit 7 70000000000000007 18; Arg 16 0 3; Cos 17 16;
  Mul 18 12 17; Sin 16 16; Mul 19 13 16; Add 18 18 19; Mul 19 7 18; Lit 20 (-43609) 7; Mul 13 13 17;
  Mul 12 12 16; Sub 13 13 12; Mul 12 20 13; Add 19 19 12; Add 19 14 19; Lit 12 15440000000000001 17; Arg 21 0 4;
  Cos 22 21; Mul 18 18 22; Cos 1 1; Sin 21 21; Mul 23 1 21; Sub 18 18 23; Mul 23 12 18; Add 23 19 23; Neg 24 23;
  Out 0 0 24; Lit 24 10200000000000001 17; Mul 25 4 5; Sub 25 24 25; Mul 26 6 10; Mul 27 5 11; Sub 26 26 27;
  Mul 27 9 26; Mul 28 5 10; Mul 29 6 11; Add 28 28 29; Mul 29 15 28; Add 27 27 29; Add 27 25 27; Mul 29 26 17;
  Mul 30 28 16; Add 29 29 30; Mul 30 7 29; Mul 28 28 17; Mul 26 26 16; Sub 28 28 26; Mul 26 20 28; Add 30 30 26;
  Add 30 27 30; Mul 29 29 22; Mul 26 12 29; Add 26 30 26; Mul 31 26 1; Mul 32 24 1; Sub 31 31 32; Out 0 1 31;
  Mul 31 25 1; Mul 32 26 1; Sub 31 31 32; Out 0 2 31; Mul 31 27 1; Mul 32 26 1; Sub 31 31 32; Out 0 3 31;
  Mul 31 30 13; Mul 32 19 28; Sub 31 31 32; Mul 32 26 13; Mul 33 23 28; Sub 32 32 33; Sub 31 31 32; Out 0 4 31;
  Mul 31 23 29; Mul 32 26 18; Sub 31 31 32; Mul 32 23 29; Mul 33 26 18; Sub 32 32 33; Sub 31 31 32; Out 0 5 31;
  Mul 0 0 1; Mul 6 1 6; Mul 4 4 6; Add 4 0 4; Mul 31 6 11; Mul 5 1 5; Mul 32 5 10; Add 31 31 32; Mul 9 9 31;
  Mul 5 5 11; Mul 6 6 10; Sub 5 5 6; Mul 15 15 5; Add 9 9 15; Add 9 4 9; Mul 15 31 17; Mul 6 5 16; Add 15 15 6;
  Mul 7 7 15; Mul 5 5 17; Mul 31 31 16; Sub 5 5 31; Mul 20 20 5; Add 7 7 20; Add 7 9 7; Mul 15 15 22;
  Mul 21 2 21; Add 15 15 21; Mul 12 12 15; Add 12 7 12; Out 0 6 12; Mul 21 26 2; Mul 24 24 2; Sub 21 21 24;
  Out 0 7 21; Mul 25 25 2; Mul 21 26 2; Sub 25 25 21; Out 0 8 25; Mul 27 27 2; Mul 25 26 2].
Definition casadi_f1_2 : list instruction := [
  Sub 27 27 25; Out 0 9 27; Mul 27 7 28; Mul 30 30 5; Sub 27 27 30; Mul 30 12 28; Mul 25 26 5; Sub 30 30 25;
  Sub 27 27 30; Out 0 10 27; Mul 27 26 15; Mul 30 12 29; Sub 27 27 30; Mul 26 26 15; Mul 30 12 29; Sub 26 26 30;
  Sub 27 27 26; Out 0 11 27; Lit 27 0 0; Out 0 12 27; Mul 0 0 1; Mul 3 3 2; Add 0 0 3; Mul 3 12 1; Mul 26 23 2;
  Add 3 3 26; Sub 0 0 3; Out 0 13 0; Mul 0 12 1; Mul 3 23 2; Add 0 0 3; Mul 4 4 1; Mul 8 8 2; Add 4 4 8;
  Sub 0 0 4; Out 0 14 0; Mul 0 12 1; Mul 4 23 2; Add 0 0 4; Mul 9 9 1; Mul 14 14 2; Add 9 9 14; Sub 0 0 9;
  Out 0 15 0; Mul 19 19 5; Mul 7 7 13; Sub 19 19 7; Mul 7 23 5; Mul 0 12 13; Sub 7 7 0; Sub 19 19 7;
  Out 0 16 19; Mul 19 12 18; Mul 7 23 15; Sub 19 19 7; Mul 12 12 18; Mul 23 23 15; Sub 12 12 23; Sub 19 19 12;
  Out 0 17 19; Out 0 18 27; Neg 19 2; Out 0 19 19; Out 0 20 2; Out 0 21 2; Neg 5 5; Out 0 22 5; Out 0 23 15;
  Out 0 24 27; Out 0 25 1; Neg 15 1; Out 0 26 15; Neg 1 1; Out 0 27 1; Neg 13 13; Out 0 28 13; Out 0 29 18;
  Lit 18 1 0; Out 0 30 18; Out 0 31 27; Out 0 32 27; Out 0 33 27; Neg 28 28; Out 0 34 28; Out 0 35 29].
Definition casadi_f1 : casadi_function := {| f_locals := casadi_f1_locals; f_code := 
  casadi_f1_1 ++ casadi_f1_2 |}.
Definition casadi_zero_jacobian : casadi_function * casadi_interface := (casadi_f1, {|
  f_name_in := ["i0"]; f_name_out := ["o0"]; f_sparsity_in := [casadi_s0]; f_sparsity_out := [casadi_s2];
  f_n_in := 1; f_n_out := 1; f_work := (1, 1, 0, 0)%nat |}).

(** ** [casadi_body_jacobian]: [casadi_f2] *)

Definition casadi_f2_locals : N := 36.
Definition casadi_f2_1 : list instruction := [
  Arg 0 0 0; Sin 1 0; Arg 2 0 1; Cos 3 2; Mul 4 1 3; Arg 5 0 2; Cos 6 5; Mul 7 4 6; Sin 2 2; Mul 8 1 2; Sin 5 5;
  Mul 9 8 5; Add 7 7 9; Arg 9 0 3; Cos 10 9; Mul 11 7 10; Mul 8 8 6; Mul 12 4 5; Sub 8 8 12; Sin 9 9;
  Mul 12 8 9; Add 11 11 12; Arg 12 0 4; Cos 13 12; Mul 14 11 13; Cos 0 0; Sin 12 12; Mul 15 0 12; Sub 14 14 15;
  Lit 15 18199 6; Mul 16 15 0; Lit 17 (-26000000000000001) 17; Mul 18 0 3; Mul 19 17 18; Add 19 16 19;
  Lit 20 23000000000000001 17; Mul 21 18 6; Mul 22 0 2; Mul 23 22 5; Add 21 21 23; Mul 23 20 21;
  Lit 24 59999999999999998 18; Mul 22 22 6; Mul 18 18 5; Sub 22 22 18; Mul 18 24 22; Add 23 23 18; Add 23 19 23;
  Lit 18 70000000000000007 18; Mul 25 21 10; Mul 26 22 9; Add 25 25 26; Mul 26 18 25; Lit 27 (-43609) 7;
  Mul 22 22 10; Mul 21 21 9; Sub 22 22 21; Mul 21 27 22; Add 26 26 21; Add 26 23 26;
  Lit 21 15440000000000001 17; Mul 28 25 13; Mul 29 1 12; Add 28 28 29; Mul 29 21 28; Add 29 26 29;
  Mul 30 14 29; Mul 15 15 1; Mul 4 17 4; Add 4 15 4; Mul 31 20 7; Mul 32 24 8; Add 31 31 32; Add 31 4 31;
  Mul 32 18 11; Mul 8 8 10; Mul 7 7 9; Sub 8 8 7; Mul 7 27 8; Add 32 32 7; Add 32 31 32; Mul 7 21 14;
  Add 7 32 7; Mul 33 28 7; Sub 30 30 33; Out 0 0 30; Lit 30 10200000000000001 17; Mul 17 17 2; Sub 17 30 17;
  Mul 33 3 5; Mul 34 2 6; Sub 33 33 34; Mul 20 20 33; Mul 2 2 5; Mul 3 3 6; Add 2 2 3; Mul 24 24 2;
  Add 20 20 24; Add 20 17 20; Mul 24 33 10; Mul 3 2 9; Add 24 24 3; Mul 18 18 24; Mul 2 2 10; Mul 33 33 9;
  Sub 2 2 33; Mul 27 27 2; Add 18 18 27; Add 18 20 18; Mul 27 24 13; Mul 21 21 27; Add 21 18 21; Mul 33 21 0;
  Mul 9 30 0; Sub 33 33 9; Mul 9 28 33; Mul 10 21 1; Mul 30 30 1; Sub 10 10 30; Mul 30 14 10; Mul 16 16 0;
  Mul 15 15 1; Add 16 16 15; Mul 15 29 0; Mul 3 7 1; Add 15 15 3; Sub 16 16 15; Mul 15 27 16; Add 30 30 15;
  Add 9 9 30; Out 0 1 9; Mul 9 17 0; Mul 30 21 0; Sub 9 9 30; Mul 30 28 9; Mul 17 17 1; Mul 15 21 1;
  Sub 17 17 15; Mul 15 14 17; Mul 3 29 0; Mul 6 7 1; Add 3 3 6; Mul 19 19 0; Mul 4 4 1; Add 19 19 4; Sub 3 3 19;
  Mul 19 27 3; Add 15 15 19; Add 30 30 15].
Definition casadi_f2_2 : list instruction := [
  Out 0 2 30; Mul 30 20 0; Mul 15 21 0; Sub 30 30 15; Mul 15 28 30; Mul 20 20 1; Mul 19 21 1; Sub 20 20 19;
  Mul 19 14 20; Mul 4 29 0; Mul 6 7 1; Add 4 4 6; Mul 23 23 0; Mul 31 31 1; Add 23 23 31; Sub 4 4 23;
  Mul 23 27 4; Add 19 19 23; Add 15 15 19; Out 0 3 15; Mul 15 18 8; Mul 19 32 2; Sub 15 15 19; Mul 19 21 8;
  Mul 23 7 2; Sub 19 19 23; Sub 15 15 19; Mul 19 28 15; Mul 23 26 2; Mul 18 18 22; Sub 23 23 18; Mul 18 29 2;
  Mul 31 21 22; Sub 18 18 31; Sub 23 23 18; Mul 18 14 23; Mul 32 32 22; Mul 26 26 8; Sub 32 32 26; Mul 26 7 22;
  Mul 31 29 8; Sub 26 26 31; Sub 32 32 26; Mul 26 27 32; Add 18 18 26; Add 19 19 18; Out 0 4 19; Mul 19 7 27;
  Mul 18 21 14; Sub 19 19 18; Mul 18 7 27; Mul 26 21 14; Sub 18 18 26; Sub 19 19 18; Mul 18 28 19; Mul 26 21 28;
  Mul 31 29 27; Sub 26 26 31; Mul 21 21 28; Mul 31 29 27; Sub 21 21 31; Sub 26 26 21; Mul 21 14 26;
  Mul 31 29 14; Mul 6 7 28; Sub 31 31 6; Mul 6 29 14; Mul 5 7 28; Sub 6 6 5; Sub 31 31 6; Mul 6 27 31;
  Add 21 21 6; Add 18 18 21; Out 0 5 18; Mul 11 11 12; Mul 18 0 13; Add 11 11 18; Arg 18 0 5; Cos 21 18;
  Mul 6 11 21; Sin 18 18; Mul 5 8 18; Add 6 6 5; Mul 5 6 29; Mul 25 25 12; Mul 13 1 13; Sub 25 25 13;
  Mul 13 25 21; Mul 34 22 18; Add 13 13 34; Mul 34 13 7; Sub 5 5 34; Out 0 6 5; Mul 5 13 33; Mul 34 6 10;
  Mul 24 24 12; Mul 12 24 21; Mul 35 2 18; Add 12 12 35; Mul 35 12 16; Add 34 34 35; Add 5 5 34; Out 0 7 5;
  Mul 5 13 9; Mul 34 6 17; Mul 35 12 3; Add 34 34 35; Add 5 5 34; Out 0 8 5; Mul 5 13 30; Mul 34 6 20;
  Mul 35 12 4; Add 34 34 35; Add 5 5 34; Out 0 9 5; Mul 5 13 15; Mul 34 6 23; Mul 35 12 32; Add 34 34 35;
  Add 5 5 34; Out 0 10 5; Mul 5 13 19; Mul 34 6 26; Mul 35 12 31; Add 34 34 35; Add 5 5 34; Out 0 11 5;
  Mul 5 8 21; Mul 11 11 18; Sub 5 5 11; Mul 29 5 29; Mul 11 22 21; Mul 25 25 18; Sub 11 11 25; Mul 7 11 7;
  Sub 29 29 7; Out 0 12 29; Mul 33 11 33; Mul 10 5 10; Mul 21 2 21; Mul 24 24 18; Sub 21 21 24; Mul 16 21 16;
  Add 10 10 16; Add 33 33 10; Out 0 13 33; Mul 9 11 9; Mul 17 5 17; Mul 3 21 3].
Definition casadi_f2_3 : list instruction := [
  Add 17 17 3; Add 9 9 17; Out 0 14 9; Mul 30 11 30; Mul 20 5 20; Mul 4 21 4; Add 20 20 4; Add 30 30 20;
  Out 0 15 30; Mul 15 11 15; Mul 23 5 23; Mul 32 21 32; Add 23 23 32; Add 15 15 23; Out 0 16 15; Mul 19 11 19;
  Mul 26 5 26; Mul 31 21 31; Add 26 26 31; Add 19 19 26; Out 0 17 19; Out 0 18 27; Mul 19 14 0; Mul 26 28 1;
  Sub 19 19 26; Out 0 19 19; Mul 19 28 1; Mul 26 14 0; Sub 19 19 26; Out 0 20 19; Mul 19 28 1; Mul 26 14 0;
  Sub 19 19 26; Out 0 21 19; Mul 19 28 22; Mul 26 14 8; Mul 31 27 2; Add 26 26 31; Add 19 19 26; Neg 19 19;
  Out 0 22 19; Sq 19 28; Sq 26 14; Sq 31 27; Add 26 26 31; Add 19 19 26; Out 0 23 19; Out 0 24 12; Mul 19 6 0;
  Mul 26 13 1; Sub 19 19 26; Out 0 25 19; Mul 19 13 1; Mul 26 6 0; Sub 19 19 26; Out 0 26 19; Mul 19 13 1;
  Mul 26 6 0; Sub 19 19 26; Out 0 27 19; Mul 19 13 22; Mul 26 6 8; Mul 31 12 2; Add 26 26 31; Add 19 19 26;
  Neg 19 19; Out 0 28 19; Mul 13 13 28; Mul 6 6 14; Mul 12 12 27; Add 6 6 12; Add 13 13 6; Out 0 29 13;
  Out 0 30 21; Mul 13 5 0; Mul 6 11 1; Sub 13 13 6; Out 0 31 13; Mul 13 11 1; Mul 6 5 0; Sub 13 13 6;
  Out 0 32 13; Mul 1 11 1; Mul 0 5 0; Sub 1 1 0; Out 0 33 1; Mul 22 11 22; Mul 8 5 8; Mul 2 21 2; Add 8 8 2;
  Add 22 22 8; Neg 22 22; Out 0 34 22; Mul 11 11 28; Mul 5 5 14; Mul 21 21 27; Add 5 5 21; Add 11 11 5;
  Out 0 35 11].
Definition casadi_f2 : casadi_function := {| f_locals := casadi_f2_locals; f_code := 
  casadi_f2_1 ++ casadi_f2_2 ++ casadi_f2_3 |}.
Definition casadi_body_jacobian : casadi_function * casadi_interface := (casadi_f2, {|
  f_name_in := ["i0"]; f_name_out := ["o0"]; f_sparsity_in := [casadi_s0]; f_sparsity_out := [casadi_s2];
  f_n_in := 1; f_n_out := 1; f_work := (1, 1, 0, 0)%nat |}).

(** ** [casadi_mass]: [casadi_f3] *)

Definition casadi_f3_locals : N := 55.
Definition casadi_f3_1 : list instruction := [
  Lit 0 33554 8; Lit 1 15755760000000001 18; Arg 2 0 2; Sin 3 2; Lit 4 5295600000000001 19;
  Lit 5 40776000000000001 20; Lit 6 20248 8; Lit 7 (-67095999999999985) 20; Lit 8 (-48171999999999993) 20;
  Arg 9 0 5; Cos 10 9; Mul 11 8 10; Lit 12 127 7; Sin 9 9; Mul 13 12 9; Sub 11 11 13; Mul 11 11 10; Sub 7 7 11;
  Mul 8 8 9; Mul 12 12 10; Add 8 8 12; Mul 12 8 9; Sub 7 7 12; Lit 13 74133999999999995 20; Add 7 7 13;
  Add 6 6 7; Lit 7 19327413984103975 17; Lit 14 (-65590000000000001) 21; Lit 15 40659999999999987 21;
  Mul 16 15 9; Add 14 14 16; Sq 17 14; Lit 18 47627499999999996 19; Mul 15 15 10; Sub 18 18 15; Sq 19 18;
  Add 17 17 19; Mul 17 7 17; Add 6 6 17; Lit 17 13988999999999999 20; Add 12 12 13; Add 17 17 12;
  Lit 12 15559723319504401 18; Sq 19 14; Add 19 12 19; Mul 19 7 19; Add 17 17 19; Sub 6 6 17;
  Lit 19 19803999999999999 20; Add 11 11 13; Add 19 19 11; Sq 11 18; Add 12 12 11; Mul 12 7 12; Add 19 19 12;
  Sub 19 19 17; Add 12 6 19; Arg 11 0 4; Cos 13 11; Mul 19 13 19; Sin 11 11; Lit 20 (-50999999999999999) 23;
  Lit 21 53000000000000001 23; Mul 22 21 9; Lit 23 106 8; Mul 24 23 9; Sub 22 22 24; Add 20 20 22;
  Lit 22 (-24108749485458318) 18; Mul 24 22 14; Sub 20 20 24; Mul 24 11 20; Sub 19 19 24; Mul 24 19 13;
  Mul 20 13 20; Mul 6 11 6; Sub 20 20 6; Mul 6 20 11; Sub 24 24 6; Sub 12 12 24; Add 12 12 17; Add 5 5 12;
  Lit 12 26959258405169112 17; Lit 6 (-89886999999999996) 20; Lit 25 (-30919148371155605) 21;
  Lit 26 52859965892429317 17; Mul 16 26 16; Sub 25 25 16; Mul 16 13 25; Lit 27 67350171986687024 18;
  Mul 28 27 11; Sub 16 16 28; Sub 6 6 16; Sq 28 6; Lit 29 53455000000000003 18; Lit 30 (-43609) 7;
  Lit 31 22451619744583221 19; Mul 26 26 15; Add 31 31 26; Add 26 30 31; Sub 29 29 26; Sq 15 29; Add 28 28 15;
  Mul 28 12 28; Add 5 5 28; Lit 28 46357000000000001 20; Add 28 28 17; Lit 15 57778009999999998 18;
  Lit 32 70000000000000007 18; Mul 27 27 13; Mul 33 11 25; Add 27 27 33; Add 27 32 27; Sub 15 15 27; Sq 33 15;
  Sq 34 6; Add 33 33 34; Mul 33 12 33; Add 28 28 33; Sub 5 5 28; Arg 33 0 3; Sin 34 33; Mul 35 34 5; Cos 33 33;
  Lit 36 2 0; Lit 37 (-20722000000000001) 20; Lit 38 50000000000000004 22; Mul 23 23 10; Mul 21 21 10;
  Sub 23 23 21; Add 38 38 23; Mul 22 22 18; Sub 38 38 22; Mul 22 36 38; Mul 23 22 13; Lit 21 (-48) 9;
  Mul 8 8 10; Lit 39 (-63500000000000002) 22; Add 8 8 39; Add 21 21 8; Mul 7 7 14; Mul 7 7 18; Sub 21 21 7;
  Add 7 21 21; Mul 18 7 11; Add 23 23 18; Mul 18 11 21; Mul 14 13 38; Add 18 18 14].
Definition casadi_f3_2 : list instruction := [
  Sub 23 23 18; Add 37 37 23; Mul 23 12 15; Mul 23 23 29; Sub 37 37 23; Mul 23 36 37; Mul 23 33 23;
  Add 35 35 23; Mul 23 35 34; Sub 5 5 23; Add 5 5 28; Add 4 4 5; Lit 5 4159718574572624 16;
  Lit 18 (-17087599999999995) 19; Lit 14 (-31242648971025144) 20; Lit 8 65242305371160303 17; Mul 16 8 16;
  Add 14 14 16; Sub 18 18 14; Sq 16 18; Lit 39 53546429999999985 18; Lit 40 59999999999999998 18;
  Lit 41 20082304278420466 18; Mul 27 8 27; Add 41 41 27; Mul 27 34 41; Lit 42 18579725663846264 18; Mul 8 8 26;
  Add 42 42 8; Mul 8 33 42; Add 27 27 8; Add 27 40 27; Sub 39 39 27; Sq 8 39; Add 16 16 8; Mul 16 5 16;
  Add 4 4 16; Lit 16 49002400000000002 19; Add 23 23 28; Add 16 16 23; Lit 23 16524528999999993 17;
  Lit 28 23000000000000001 17; Mul 8 33 41; Mul 26 34 42; Sub 8 8 26; Add 8 28 8; Sub 23 23 8; Sq 26 23;
  Sq 43 18; Add 26 26 43; Mul 26 5 26; Add 16 16 26; Sub 4 4 16; Mul 26 3 4; Cos 2 2;
  Lit 43 (-64190000000000004) 20; Mul 35 35 33; Sub 35 35 37; Add 43 43 35; Mul 35 5 23; Mul 35 35 39;
  Sub 43 43 35; Mul 35 36 43; Mul 35 2 35; Add 26 26 35; Mul 35 26 3; Add 37 35 16; Add 1 1 37;
  Lit 37 69278894623179077 17; Lit 44 (-12834931999999999) 17; Lit 45 (-26000000000000001) 17;
  Lit 46 57818305509044585 18; Lit 47 65010618148907839 17; Mul 8 47 8; Add 46 46 8; Mul 8 2 46;
  Lit 48 18735564860327764 18; Mul 27 47 27; Add 48 48 27; Mul 27 3 48; Sub 8 8 27; Add 8 45 8; Sub 44 44 8;
  Sq 27 44; Lit 49 (-22248300000000001) 19; Lit 50 (-59788456131872221) 20; Mul 47 47 14; Add 50 50 47;
  Sub 49 49 50; Sq 47 49; Add 27 27 47; Mul 27 37 27; Add 1 1 27; Arg 27 0 1; Cos 47 27;
  Lit 51 (-30360000000000001) 21; Mul 26 26 2; Sub 26 26 43; Add 51 51 26; Mul 26 37 44;
  Lit 43 35523999999999999 20; Mul 52 3 46; Mul 53 2 48; Add 52 52 53; Sub 43 43 52; Mul 26 26 43; Sub 51 51 26;
  Mul 36 36 51; Mul 36 47 36; Sin 27 27; Lit 51 5917600000000002 19; Sub 4 4 35; Add 4 4 16; Add 51 51 4;
  Sq 4 49; Sq 16 43; Add 4 4 16; Mul 4 37 4; Add 51 51 4; Sub 51 51 1; Mul 51 27 51; Sub 36 36 51; Mul 36 36 27;
  Sub 1 1 36; Add 0 0 1; Lit 1 23914391521106709 17; Lit 36 28928521513269701 19; Lit 51 18199 6;
  Lit 4 (-48624050952747695) 18; Lit 16 62115848410612784 17; Mul 8 16 8; Add 4 4 8; Mul 8 47 4;
  Lit 35 13457966010613917 20; Mul 52 16 52; Add 35 35 52; Mul 52 27 35; Add 8 8 52; Add 8 51 8; Sub 36 36 8;
  Sq 36 36; Lit 52 (-243378984925675) 17; Lit 26 (-84285796980616389) 20; Mul 16 16 50; Add 26 26 16;
  Sub 52 52 26; Sq 52 52; Add 36 36 52; Mul 1 1 36].
Definition casadi_f3_3 : list instruction := [
  Add 0 0 1; Lit 1 32043085324192728 16; Lit 36 23498741877185062 20; Lit 52 9187696410049645 16; Mul 8 52 8;
  Add 36 36 8; Sq 36 36; Lit 8 (-19769762317359922) 20; Mul 52 52 26; Add 8 8 52; Sq 8 8; Add 36 36 8;
  Mul 1 1 36; Add 0 0 1; Out 0 0 0; Lit 0 (-23099999999999999) 22; Lit 1 (-43099999999999997) 21;
  Lit 36 (-19760000000000001) 21; Mul 20 20 13; Mul 19 19 11; Add 20 20 19; Add 36 36 20; Mul 20 12 15;
  Mul 20 20 6; Sub 36 36 20; Mul 20 36 33; Lit 19 (-17900000000000001) 21; Mul 7 7 13; Mul 22 22 11; Sub 7 7 22;
  Mul 22 11 38; Mul 8 13 21; Sub 22 22 8; Add 7 7 22; Add 19 19 7; Mul 6 12 6; Mul 6 6 29; Sub 19 19 6;
  Mul 6 34 19; Sub 20 20 6; Add 1 1 20; Mul 20 5 23; Mul 20 20 18; Sub 1 1 20; Mul 20 3 1; Lit 6 (-2107) 8;
  Mul 7 34 36; Add 22 19 19; Mul 22 33 22; Add 7 7 22; Mul 22 33 19; Sub 7 7 22; Add 6 6 7; Mul 18 5 18;
  Mul 18 18 39; Sub 6 6 18; Add 18 6 6; Mul 18 2 18; Add 20 20 18; Mul 18 2 6; Sub 20 20 18; Add 0 0 20;
  Mul 20 37 49; Mul 20 20 43; Sub 0 0 20; Lit 20 29440214 7; Mul 18 20 26; Mul 18 18 35; Sub 0 0 18; Mul 0 47 0;
  Lit 18 (-40999999999999997) 22; Mul 7 1 2; Mul 22 3 6; Sub 7 7 22; Add 18 18 7; Mul 7 37 44; Mul 7 7 49;
  Sub 18 18 7; Mul 7 20 4; Mul 7 7 26; Sub 18 18 7; Mul 18 27 18; Sub 0 0 18; Out 0 1 0; Lit 18 (-182870387) 8;
  Mul 7 18 48; Mul 26 50 7; Add 6 6 26; Mul 26 3 6; Mul 18 18 46; Mul 50 50 18; Add 1 1 50; Mul 50 2 1;
  Sub 26 26 50; Mul 26 27 26; Mul 1 3 1; Mul 6 2 6; Add 1 1 6; Mul 1 47 1; Add 26 26 1; Neg 26 26; Out 0 2 26;
  Lit 1 (-11888516899999999) 16; Mul 6 1 42; Mul 50 14 6; Add 19 19 50; Mul 50 34 19; Mul 1 1 41; Mul 14 14 1;
  Add 36 36 14; Mul 14 33 36; Sub 50 50 14; Mul 14 3 50; Mul 36 34 36; Mul 19 33 19; Add 36 36 19; Mul 19 2 36;
  Sub 14 14 19; Mul 14 47 14; Mul 50 2 50; Mul 36 3 36; Add 50 50 36; Mul 50 27 50; Sub 14 14 50; Out 0 3 14;
  Lit 50 (-52239100136264996) 18; Mul 36 50 31; Add 38 38 36; Mul 36 13 38; Lit 19 (-77563424999999997) 17;
  Mul 19 19 25; Mul 31 31 19; Add 21 21 31; Mul 31 11 21; Add 36 36 31; Mul 31 11 19; Mul 49 50 13;
  Add 31 31 49; Mul 49 30 31; Add 36 36 49; Mul 49 33 36; Lit 22 (-35183123786072129) 19; Mul 25 25 19;
  Add 22 22 25; Sub 22 22 17; Mul 25 32 31; Add 25 22 25; Mul 8 34 25; Add 49 49 8].
Definition casadi_f3_4 : list instruction := [
  Mul 8 40 31; Add 49 49 8; Mul 8 2 49; Mul 25 33 25; Mul 36 34 36; Sub 25 25 36; Mul 36 28 31; Add 25 25 36;
  Mul 36 3 25; Add 8 8 36; Mul 8 27 8; Mul 25 2 25; Mul 49 3 49; Sub 25 25 49; Mul 49 45 31; Add 25 25 49;
  Mul 25 47 25; Add 8 8 25; Mul 31 51 31; Add 8 8 31; Out 0 4 8; Lit 31 55210067782659599 20; Mul 25 31 13;
  Lit 49 10009111087999996 22; Mul 36 49 9; Lit 52 15440000000000001 17; Lit 16 (-16670599999999992) 21;
  Mul 9 16 9; Mul 53 52 9; Add 36 36 53; Mul 53 11 36; Sub 25 25 53; Mul 16 16 10; Mul 53 13 16; Mul 54 30 53;
  Sub 25 25 54; Mul 54 33 25; Mul 49 49 10; Mul 52 52 16; Add 49 49 52; Mul 52 32 53; Add 52 49 52;
  Mul 10 34 52; Sub 54 54 10; Mul 10 40 53; Sub 54 54 10; Mul 10 3 54; Mul 25 34 25; Mul 52 33 52; Add 25 25 52;
  Mul 52 28 53; Add 25 25 52; Mul 52 2 25; Add 10 10 52; Mul 52 45 53; Add 10 10 52; Mul 47 47 10; Mul 54 2 54;
  Mul 25 3 25; Sub 54 54 25; Mul 27 27 54; Sub 47 47 27; Mul 51 51 53; Add 47 47 51; Out 0 5 47; Out 0 6 0;
  Lit 0 1566528 8; Lit 51 496672 8; Lit 53 54903999999999999 20; Add 24 24 17; Add 53 53 24; Sq 15 15; Sq 29 29;
  Add 15 15 29; Mul 12 12 15; Add 53 53 12; Add 51 51 53; Sq 23 23; Sq 39 39; Add 23 23 39; Mul 5 5 23;
  Add 51 51 5; Add 0 0 51; Sq 44 44; Sq 43 43; Add 44 44 43; Mul 37 37 44; Add 0 0 37; Sq 4 4; Sq 35 35;
  Add 4 4 35; Mul 20 20 4; Add 0 0 20; Out 0 7 0; Mul 48 48 7; Mul 46 46 18; Add 48 48 46; Sub 48 48 51;
  Mul 7 3 7; Mul 18 2 18; Sub 7 7 18; Mul 7 45 7; Sub 7 48 7; Out 0 8 7; Mul 42 42 6; Mul 41 41 1; Add 42 42 41;
  Sub 42 42 53; Mul 53 33 6; Mul 41 34 1; Add 53 53 41; Mul 41 40 53; Mul 6 34 6; Mul 1 33 1; Sub 6 6 1;
  Mul 1 28 6; Sub 41 41 1; Add 41 42 41; Mul 53 3 53; Mul 6 2 6; Add 53 53 6; Mul 53 45 53; Sub 53 41 53;
  Out 0 9 53; Mul 38 11 38; Mul 21 13 21; Sub 38 38 21; Mul 50 50 11; Mul 19 13 19; Sub 50 50 19; Mul 19 30 50;
  Add 38 38 19; Mul 19 33 50; Mul 21 40 19; Mul 50 34 50; Mul 6 28 50; Sub 21 21 6; Add 21 38 21; Mul 19 3 19;
  Mul 50 2 50; Add 19 19 50; Mul 19 45 19; Sub 19 21 19; Out 0 10 19; Mul 16 11 16; Mul 30 30 16; Mul 32 32 9;
  Sub 30 30 32; Mul 11 31 11].
Definition casadi_f3_5 : list instruction := [
  Mul 13 13 36; Add 11 11 13; Sub 30 30 11; Mul 11 33 16; Mul 13 34 9; Sub 11 11 13; Mul 40 40 11; Mul 34 34 16;
  Mul 33 33 9; Add 34 34 33; Mul 28 28 34; Sub 40 40 28; Add 40 30 40; Mul 3 3 11; Mul 2 2 34; Add 3 3 2;
  Mul 45 45 3; Sub 45 40 45; Out 0 11 45; Out 0 12 26; Out 0 13 7; Neg 48 48; Out 0 14 48; Neg 41 41;
  Out 0 15 41; Neg 21 21; Out 0 16 21; Neg 40 40; Out 0 17 40; Out 0 18 14; Out 0 19 53; Out 0 20 41; Neg 42 42;
  Out 0 21 42; Neg 38 38; Out 0 22 38; Neg 30 30; Out 0 23 30; Out 0 24 8; Out 0 25 19; Out 0 26 21;
  Out 0 27 38; Neg 22 22; Out 0 28 22; Neg 49 49; Out 0 29 49; Out 0 30 47; Out 0 31 45; Out 0 32 40;
  Out 0 33 30; Out 0 34 49; Out 0 35 31].
Definition casadi_f3 : casadi_function := {| f_locals := casadi_f3_locals; f_code := 
  casadi_f3_1 ++ casadi_f3_2 ++ casadi_f3_3 ++ casadi_f3_4 ++ casadi_f3_5 |}.
Definition casadi_mass : casadi_function * casadi_interface := (casadi_f3, {|
  f_name_in := ["i0"]; f_name_out := ["o0"]; f_sparsity_in := [casadi_s0]; f_sparsity_out := [casadi_s2];
  f_n_in := 1; f_n_out := 1; f_work := (1, 1, 0, 0)%nat |}).

(** ** [casadi_coriolis]: [casadi_f4] *)

Definition casadi_f4_locals : N := 360.
Definition casadi_f4_1 : list instruction := [
  Lit 0 111531753 8; Lit 1 5 1; Arg 2 0 0; Cos 3 2; Lit 4 18199 6; Arg 5 1 0; Mul 6 4 5; Mul 7 3 6;
  Lit 8 10200000000000001 17; Arg 9 0 1; Sin 10 9; Mul 11 3 10; Cos 9 9; Mul 12 9 5; Mul 13 11 12; Sin 2 2;
  Arg 14 1 1; Mul 15 2 14; Sub 13 13 15; Mul 15 3 9; Mul 16 10 5; Mul 17 15 16; Sub 13 13 17; Mul 17 8 13;
  Mul 18 4 3; Mul 19 10 16; Mul 20 9 12; Add 19 19 20; Mul 20 18 19; Sub 17 17 20; Add 7 7 17; Mul 17 1 7;
  Mul 17 0 17; Mul 4 4 2; Lit 20 (-12834931999999999) 17; Mul 21 2 9; Mul 22 20 21;
  Lit 23 (-22248300000000001) 19; Mul 24 23 3; Lit 25 35523999999999999 20; Mul 26 2 10; Mul 27 25 26;
  Add 24 24 27; Add 22 22 24; Add 22 4 22; Mul 24 17 22; Mul 27 4 19; Mul 28 3 14; Mul 29 26 12; Add 28 28 29;
  Mul 29 21 16; Sub 28 28 29; Mul 29 8 28; Sub 27 27 29; Mul 29 2 6; Sub 27 27 29; Mul 29 1 27; Mul 29 0 29;
  Mul 30 20 15; Mul 31 25 11; Mul 23 23 2; Sub 31 31 23; Add 30 30 31; Add 30 18 30; Mul 31 29 30; Add 24 24 31;
  Mul 31 22 17; Mul 23 30 29; Add 31 31 23; Add 23 24 31; Lit 32 (-60720000000000001) 21; Mul 33 32 9;
  Lit 34 (-15164) 6; Mul 35 34 10; Sub 33 33 35; Mul 35 33 15; Lit 36 (-46199999999999998) 22; Mul 37 36 9;
  Lit 38 (-40999999999999997) 22; Mul 39 38 10; Sub 37 37 39; Mul 39 37 2; Sub 35 35 39;
  Lit 39 (-30360000000000001) 21; Mul 40 39 3; Lit 41 (-23099999999999999) 22; Mul 42 41 21; Sub 40 40 42;
  Sub 35 35 40; Mul 40 0 30; Mul 25 25 9; Mul 20 20 10; Sub 25 25 20; Add 25 8 25; Mul 40 40 25; Sub 40 35 40;
  Mul 20 1 28; Mul 42 40 20; Mul 43 33 21; Mul 37 37 3; Add 43 43 37; Mul 37 41 15; Mul 39 39 2; Add 37 37 39;
  Sub 43 43 37; Mul 37 0 22; Mul 37 37 25; Sub 37 43 37; Mul 39 1 13; Mul 44 37 39; Sub 42 42 44; Sub 23 23 42;
  Mul 42 39 37; Mul 44 20 40; Sub 42 42 44; Add 23 23 42; Lit 42 63985217999999999 17;
  Lit 44 (-26000000000000001) 17; Mul 45 44 12; Add 6 6 45; Mul 45 3 6; Arg 46 0 2; Cos 47 46; Mul 48 26 47;
  Sin 46 46; Mul 49 21 46; Sub 48 48 49; Mul 49 44 14; Mul 50 47 49; Mul 51 48 50; Sub 45 45 51; Mul 51 21 47;
  Mul 52 26 46; Add 51 51 52; Mul 49 46 49; Mul 52 51 49; Sub 45 45 52; Mul 52 44 10; Sub 52 8 52; Mul 53 15 47;
  Mul 54 11 46; Add 53 53 54; Mul 54 46 12; Mul 55 47 16; Sub 54 54 55; Mul 55 53 54; Mul 11 11 47;
  Mul 56 15 46; Sub 11 11 56].
Definition casadi_f4_2 : list instruction := [
  Mul 16 46 16; Mul 12 47 12; Add 16 16 12; Mul 12 11 16; Arg 56 1 2; Sub 57 14 56; Mul 58 2 57; Sub 12 12 58;
  Add 55 55 12; Mul 12 52 55; Mul 58 44 15; Add 58 18 58; Mul 59 9 46; Mul 60 10 47; Sub 59 59 60; Mul 60 59 54;
  Mul 46 10 46; Mul 9 9 47; Add 46 46 9; Mul 9 46 16; Add 60 60 9; Mul 9 58 60; Sub 12 12 9; Add 45 45 12;
  Mul 12 1 45; Mul 12 42 12; Mul 44 44 21; Add 44 4 44; Lit 9 16524528999999993 17; Mul 47 9 51;
  Lit 61 (-17087599999999995) 19; Mul 62 61 3; Lit 63 53546429999999985 18; Mul 64 63 48; Add 62 62 64;
  Add 47 47 62; Add 47 44 47; Mul 62 12 47; Mul 64 44 60; Mul 65 51 54; Mul 66 3 57; Mul 67 48 16; Add 66 66 67;
  Add 65 65 66; Mul 66 52 65; Sub 64 64 66; Mul 66 53 49; Mul 67 2 6; Mul 68 11 50; Add 67 67 68; Add 66 66 67;
  Sub 64 64 66; Mul 66 1 64; Mul 66 42 66; Mul 67 9 53; Mul 68 63 11; Mul 61 61 2; Sub 68 68 61; Add 67 67 68;
  Add 67 58 67; Mul 68 66 67; Add 62 62 68; Mul 68 47 12; Mul 61 67 66; Add 68 68 61; Add 61 62 68;
  Lit 69 (-43706800000000001) 19; Mul 70 69 59; Lit 71 (-12838000000000001) 19; Mul 72 71 46; Add 70 70 72;
  Mul 72 70 53; Lit 73 (-43099999999999997) 21; Mul 74 73 59; Lit 75 (-4214) 8; Mul 76 75 46; Add 74 74 76;
  Mul 76 74 2; Sub 72 72 76; Lit 76 (-64190000000000004) 20; Mul 77 76 3; Lit 78 (-2107) 8; Mul 79 78 51;
  Sub 77 77 79; Sub 72 72 77; Mul 77 42 67; Mul 9 9 59; Mul 63 63 46; Add 9 9 63; Add 9 52 9; Mul 77 77 9;
  Sub 77 72 77; Mul 63 1 65; Mul 79 77 63; Mul 80 70 51; Mul 74 74 3; Add 80 80 74; Mul 74 78 53; Mul 76 76 2;
  Add 74 74 76; Sub 80 80 74; Mul 74 42 47; Mul 74 74 9; Sub 74 80 74; Mul 76 1 55; Mul 81 74 76; Sub 79 79 81;
  Sub 61 61 79; Mul 79 76 74; Mul 81 63 77; Sub 79 79 81; Add 61 61 79; Lit 79 41321743999999999 17; Arg 81 0 3;
  Cos 82 81; Mul 83 51 82; Sin 81 81; Mul 84 48 81; Add 83 83 84; Lit 84 59999999999999998 18; Mul 85 84 57;
  Sub 85 85 49; Mul 86 82 85; Lit 87 23000000000000001 17; Mul 88 87 57; Add 88 50 88; Mul 89 81 88;
  Sub 86 86 89; Mul 89 83 86; Mul 90 84 54; Mul 91 87 16; Sub 90 90 91; Sub 6 6 90; Mul 90 3 6; Mul 91 48 82;
  Mul 92 51 81; Sub 91 91 92; Mul 85 81 85; Mul 88 82 88; Add 85 85 88; Mul 88 91 85; Sub 90 90 88;
  Add 89 89 90; Mul 90 87 59; Mul 88 84 46; Add 90 90 88; Add 90 52 90; Mul 88 53 82; Mul 92 11 81].
Definition casadi_f4_3 : list instruction := [
  Add 88 88 92; Mul 92 82 54; Mul 93 81 16; Add 92 92 93; Mul 93 88 92; Mul 94 11 82; Mul 95 53 81;
  Sub 94 94 95; Mul 16 82 16; Mul 54 81 54; Sub 16 16 54; Mul 54 94 16; Arg 95 1 3; Sub 57 57 95; Mul 96 2 57;
  Sub 54 54 96; Add 93 93 54; Mul 54 90 93; Mul 96 87 53; Mul 11 84 11; Add 96 96 11; Add 96 58 96;
  Mul 11 59 82; Mul 97 46 81; Add 11 11 97; Mul 97 11 92; Mul 82 46 82; Mul 81 59 81; Sub 82 82 81;
  Mul 81 82 16; Add 97 97 81; Mul 81 96 97; Sub 54 54 81; Add 89 89 54; Mul 54 1 89; Mul 54 79 54; Mul 87 87 51;
  Mul 84 84 48; Add 87 87 84; Add 87 44 87; Lit 84 57778009999999998 18; Mul 81 84 83;
  Lit 98 (-89886999999999996) 20; Mul 99 98 3; Lit 100 53455000000000003 18; Mul 101 100 91; Add 99 99 101;
  Add 81 81 99; Add 81 87 81; Mul 99 54 81; Mul 101 88 86; Mul 102 2 6; Mul 103 94 85; Add 102 102 103;
  Sub 101 101 102; Mul 102 87 97; Mul 103 83 92; Mul 104 3 57; Mul 105 91 16; Add 104 104 105; Add 103 103 104;
  Mul 104 90 103; Sub 102 102 104; Add 101 101 102; Mul 102 1 101; Mul 102 79 102; Mul 104 84 88;
  Mul 105 100 94; Mul 98 98 2; Sub 105 105 98; Add 104 104 105; Add 104 96 104; Mul 105 102 104; Add 99 99 105;
  Mul 105 81 54; Mul 98 104 102; Add 105 105 98; Add 98 99 105; Lit 106 (-55809999999999996) 21; Mul 107 106 11;
  Lit 108 (-41444000000000002) 20; Mul 109 108 82; Add 107 107 109; Mul 109 107 88;
  Lit 110 (-19760000000000001) 21; Mul 111 110 11; Lit 112 (-35800000000000003) 21; Mul 113 112 82;
  Add 111 111 113; Mul 113 111 2; Sub 109 109 113; Lit 113 (-20722000000000001) 20; Mul 114 113 3;
  Lit 115 (-17900000000000001) 21; Mul 116 115 83; Sub 114 114 116; Sub 109 109 114; Mul 114 79 104;
  Mul 84 84 11; Mul 100 100 82; Add 84 84 100; Add 84 90 84; Mul 114 114 84; Sub 114 109 114; Mul 100 1 103;
  Mul 116 114 100; Mul 117 107 83; Mul 111 111 3; Add 117 117 111; Mul 111 115 88; Mul 113 113 2;
  Add 111 111 113; Sub 117 117 111; Mul 111 79 81; Mul 111 111 84; Sub 111 117 111; Mul 113 1 93;
  Mul 118 111 113; Sub 116 116 118; Sub 98 98 116; Mul 116 113 111; Mul 118 100 114; Sub 116 116 118;
  Add 98 98 116; Lit 116 36563424999999999 17; Arg 118 0 4; Cos 119 118; Mul 120 83 119; Sin 118 118;
  Mul 121 3 118; Sub 120 120 121; Lit 121 (-43609) 7; Mul 122 121 57; Add 122 86 122; Mul 123 119 122;
  Mul 124 121 92; Lit 125 70000000000000007 18; Mul 126 125 16; Sub 124 124 126; Sub 6 6 124; Mul 124 118 6;
  Sub 123 123 124; Mul 124 120 123; Mul 126 83 118; Mul 127 3 119; Add 126 126 127; Mul 122 118 122;
  Mul 6 119 6; Add 122 122 6].
Definition casadi_f4_4 : list instruction := [
  Mul 6 126 122; Mul 127 125 57; Add 127 85 127; Mul 128 91 127; Sub 6 6 128; Add 124 124 6; Mul 6 125 11;
  Mul 128 121 82; Add 6 6 128; Add 6 90 6; Mul 128 88 119; Mul 129 2 118; Add 128 128 129; Mul 129 119 92;
  Mul 130 118 57; Sub 129 129 130; Mul 130 128 129; Mul 131 88 118; Mul 132 2 119; Sub 131 131 132;
  Mul 92 118 92; Mul 57 119 57; Add 92 92 57; Mul 57 131 92; Arg 132 1 4; Sub 16 16 132; Mul 133 94 16;
  Add 57 57 133; Add 130 130 57; Mul 57 6 130; Mul 133 125 88; Mul 134 121 94; Add 133 133 134; Add 133 96 133;
  Mul 119 11 119; Mul 134 119 129; Mul 118 11 118; Mul 135 118 92; Mul 136 82 16; Add 135 135 136;
  Add 134 134 135; Mul 135 133 134; Sub 57 57 135; Add 124 124 57; Mul 57 1 124; Mul 57 116 57; Mul 125 125 83;
  Mul 121 121 91; Add 125 125 121; Add 125 87 125; Lit 121 14133800000000001 19; Mul 135 121 120;
  Lit 136 (-65590000000000001) 21; Mul 137 136 126; Lit 138 47627499999999996 19; Mul 139 138 91;
  Add 137 137 139; Add 135 135 137; Add 135 125 135; Mul 137 57 135; Mul 139 128 123; Mul 140 131 122;
  Mul 141 94 127; Sub 140 140 141; Add 139 139 140; Mul 140 125 134; Mul 141 120 129; Mul 142 126 92;
  Mul 143 91 16; Add 142 142 143; Add 141 141 142; Mul 142 6 141; Sub 140 140 142; Add 139 139 140;
  Mul 140 1 139; Mul 140 116 140; Mul 142 121 128; Mul 143 136 131; Mul 144 138 94; Add 143 143 144;
  Add 142 142 143; Add 142 133 142; Mul 143 140 142; Add 137 137 143; Mul 143 135 57; Mul 144 142 140;
  Add 143 143 144; Add 144 137 143; Lit 145 62590000000000009 21; Mul 146 145 119;
  Lit 147 (-50999999999999999) 23; Mul 148 147 118; Lit 149 10000000000000001 21; Mul 150 149 82;
  Add 148 148 150; Add 146 146 148; Mul 148 146 128; Mul 150 147 119; Lit 151 58150000000000004 21;
  Mul 152 151 118; Lit 153 (-95999999999999999) 24; Mul 154 153 82; Add 152 152 154; Add 150 150 152;
  Mul 152 150 131; Add 148 148 152; Lit 152 50000000000000004 22; Mul 154 152 126; Lit 155 (-48) 9;
  Mul 156 155 120; Sub 154 154 156; Sub 148 148 154; Mul 154 116 142; Mul 121 121 119; Mul 136 136 118;
  Mul 138 138 82; Add 136 136 138; Add 121 121 136; Add 121 6 121; Mul 154 154 121; Sub 154 148 154;
  Mul 136 1 141; Mul 138 154 136; Mul 156 146 120; Mul 157 150 126; Add 156 156 157; Mul 157 152 131;
  Mul 158 155 128; Sub 157 157 158; Add 156 156 157; Mul 157 116 135; Mul 157 157 121; Sub 157 156 157;
  Mul 158 1 130; Mul 159 157 158; Sub 138 138 159; Sub 144 144 138; Mul 138 158 157; Mul 159 136 154;
  Sub 138 138 159; Add 144 144 138; Lit 138 40999999999999998 17; Mul 159 120 123; Arg 160 0 5; Cos 161 160;
  Mul 162 126 161; Sin 160 160; Mul 163 91 160; Add 162 162 163].
Definition casadi_f4_5 : list instruction := [
  Lit 163 15440000000000001 17; Mul 164 163 16; Add 164 122 164; Mul 165 161 164; Mul 166 163 92;
  Add 166 127 166; Mul 167 160 166; Sub 165 165 167; Mul 167 162 165; Mul 168 91 161; Mul 169 126 160;
  Sub 168 168 169; Mul 164 160 164; Mul 166 161 166; Add 164 164 166; Mul 166 168 164; Sub 167 167 166;
  Add 159 159 167; Mul 167 163 119; Add 167 6 167; Arg 166 1 5; Add 129 166 129; Mul 169 128 129;
  Mul 170 131 161; Mul 171 94 160; Add 170 170 171; Mul 171 161 92; Mul 172 160 16; Add 171 171 172;
  Mul 172 170 171; Mul 173 94 161; Mul 174 131 160; Sub 173 173 174; Mul 16 161 16; Mul 92 160 92; Sub 16 16 92;
  Mul 92 173 16; Add 172 172 92; Add 169 169 172; Mul 172 167 169; Mul 92 163 128; Add 92 133 92;
  Mul 174 119 129; Mul 175 118 161; Mul 176 82 160; Add 175 175 176; Mul 176 175 171; Mul 161 82 161;
  Mul 160 118 160; Sub 161 161 160; Mul 160 161 16; Add 176 176 160; Add 174 174 176; Mul 176 92 174;
  Sub 172 172 176; Add 159 159 172; Mul 172 1 159; Mul 172 138 172; Mul 163 163 120; Add 163 125 163;
  Lit 176 (-28247999999999992) 18; Mul 160 176 120; Lit 177 40659999999999987 21; Mul 178 177 168;
  Add 160 160 178; Add 160 163 160; Mul 178 172 160; Mul 179 128 123; Mul 180 170 165; Mul 181 173 164;
  Sub 180 180 181; Add 179 179 180; Mul 180 163 174; Mul 129 120 129; Mul 171 162 171; Mul 16 168 16;
  Add 171 171 16; Add 129 129 171; Mul 171 167 129; Sub 180 180 171; Add 179 179 180; Mul 180 1 179;
  Mul 180 138 180; Mul 171 176 128; Mul 173 177 173; Add 171 171 173; Add 171 92 171; Mul 173 180 171;
  Add 178 178 173; Mul 173 160 172; Mul 16 171 180; Add 173 173 16; Add 16 178 173;
  Lit 181 (-18923999999999992) 20; Mul 182 181 119; Lit 183 106 8; Mul 184 183 161; Add 182 182 184;
  Mul 184 182 128; Lit 185 (-48171999999999993) 20; Mul 186 185 175; Lit 187 127 7; Mul 188 187 161;
  Add 186 186 188; Mul 188 186 170; Add 184 184 188; Lit 188 53000000000000001 23; Mul 189 188 162;
  Lit 190 63500000000000002 22; Mul 191 190 120; Sub 189 189 191; Sub 184 184 189; Mul 189 138 171;
  Mul 176 176 119; Mul 177 177 161; Add 176 176 177; Add 176 167 176; Mul 189 189 176; Sub 189 184 189;
  Mul 177 1 129; Mul 191 189 177; Mul 192 182 120; Mul 193 186 162; Add 192 192 193; Mul 193 188 170;
  Mul 194 190 128; Sub 193 193 194; Add 192 192 193; Mul 193 138 160; Mul 193 193 176; Sub 193 192 193;
  Mul 194 1 169; Mul 195 193 194; Sub 191 191 195; Sub 16 16 191; Mul 191 194 193; Mul 195 177 189;
  Sub 191 191 195; Add 16 16 191; Add 144 144 16; Add 98 98 144; Add 61 61 98; Add 23 23 61; Mul 23 23 5;
  Lit 61 15755760000000001 18; Mul 33 33 10; Sub 98 61 33; Mul 70 70 59; Lit 191 49002400000000002 19].
Definition casadi_f4_6 : list instruction := [
  Add 195 70 191; Mul 107 107 11; Lit 196 46357000000000001 20; Add 197 107 196; Mul 146 146 119;
  Mul 150 150 118; Add 146 146 150; Lit 150 13988999999999999 20; Add 198 146 150; Mul 182 182 119;
  Mul 186 186 175; Add 182 182 186; Lit 186 74133999999999995 20; Add 199 182 186; Add 200 198 199;
  Lit 201 19327413984103975 17; Sub 202 142 171; Sq 203 202; Sub 204 135 160; Sq 205 204; Add 203 203 205;
  Mul 203 201 203; Add 200 200 203; Add 203 197 200; Lit 205 26959258405169112 17; Lit 206 47140034107570672 17;
  Mul 207 206 142; Lit 208 52859965892429317 17; Mul 209 208 171; Add 207 207 209; Sub 209 104 207; Sq 210 209;
  Mul 211 206 135; Mul 212 208 160; Add 211 211 212; Sub 212 81 211; Sq 213 212; Add 210 210 213;
  Mul 210 205 210; Add 203 203 210; Add 210 195 203; Lit 213 4159718574572624 16; Lit 214 34757694628839703 17;
  Mul 215 214 104; Lit 216 65242305371160303 17; Mul 217 216 207; Add 215 215 217; Sub 217 67 215; Sq 218 217;
  Mul 219 214 81; Mul 220 216 211; Add 219 219 220; Sub 220 47 219; Sq 221 220; Add 218 218 221;
  Mul 218 213 218; Add 210 210 218; Add 218 98 210; Lit 221 69278894623179077 17; Lit 222 34989381851092161 17;
  Mul 223 222 67; Lit 224 65010618148907839 17; Mul 225 224 215; Add 223 223 225; Sub 225 30 223; Sq 226 225;
  Mul 227 222 47; Mul 228 224 219; Add 227 227 228; Sub 228 22 227; Sq 229 228; Add 226 226 229;
  Mul 226 221 226; Add 218 218 226; Mul 226 13 3; Mul 229 28 2; Add 226 226 229; Mul 218 218 226;
  Add 229 148 184; Mul 230 201 202; Sub 231 121 176; Mul 230 230 231; Sub 229 229 230; Add 230 109 229;
  Mul 232 205 209; Mul 206 206 121; Mul 208 208 176; Add 206 206 208; Sub 208 84 206; Mul 232 232 208;
  Sub 230 230 232; Add 232 72 230; Mul 233 213 217; Mul 214 214 84; Mul 216 216 206; Add 214 214 216;
  Sub 216 9 214; Mul 233 233 216; Sub 232 232 233; Add 233 35 232; Mul 234 221 225; Mul 222 222 9;
  Mul 224 224 214; Add 222 222 224; Sub 224 25 222; Mul 234 234 224; Sub 233 233 234; Mul 234 19 3;
  Mul 235 233 234; Add 236 156 192; Mul 237 201 204; Mul 237 237 231; Sub 236 236 237; Add 237 117 236;
  Mul 238 205 212; Mul 238 238 208; Sub 237 237 238; Add 238 80 237; Mul 239 213 220; Mul 239 239 216;
  Sub 238 238 239; Add 239 43 238; Mul 240 221 228; Mul 240 240 224; Sub 239 239 240; Mul 240 19 2;
  Mul 241 239 240; Add 235 235 241; Sub 218 218 235; Lit 235 37884151589387227 17; Mul 241 235 30;
  Lit 242 62115848410612784 17; Mul 243 242 223; Add 241 241 243; Lit 243 29440214 7; Mul 244 235 25;
  Mul 245 242 222; Add 244 244 245; Mul 245 244 234; Mul 246 241 226; Add 245 245 246; Mul 246 18 28;
  Mul 247 4 13; Sub 246 246 247; Mul 247 246 2; Mul 248 8 3; Mul 249 19 248; Mul 18 18 3; Mul 4 4 2].
Definition casadi_f4_7 : list instruction := [
  Add 18 18 4; Mul 4 13 18; Add 249 249 4; Add 247 247 249; Sub 245 245 247; Mul 245 243 245; Mul 249 241 245;
  Mul 235 235 22; Mul 242 242 227; Add 235 235 242; Mul 242 28 18; Mul 8 8 2; Mul 4 19 8; Add 242 242 4;
  Mul 4 246 3; Sub 242 242 4; Mul 4 235 226; Mul 250 244 240; Add 4 4 250; Sub 4 242 4; Mul 4 243 4;
  Mul 250 235 4; Sub 249 249 250; Add 218 218 249; Mul 249 0 20; Mul 250 249 22; Mul 251 0 39; Mul 252 251 30;
  Add 250 250 252; Mul 252 22 249; Mul 253 30 251; Add 252 252 253; Sub 253 250 252; Mul 254 42 63;
  Mul 255 254 47; Mul 256 42 76; Mul 257 256 67; Add 255 255 257; Mul 257 47 254; Mul 258 67 256;
  Add 257 257 258; Sub 258 255 257; Mul 259 79 100; Mul 260 259 81; Mul 261 79 113; Mul 262 261 104;
  Add 260 260 262; Mul 262 81 259; Mul 263 104 261; Add 262 262 263; Sub 263 260 262; Mul 264 116 136;
  Mul 265 264 135; Mul 266 116 158; Mul 267 266 142; Add 265 265 267; Mul 267 135 264; Mul 268 142 266;
  Add 267 267 268; Sub 268 265 267; Mul 269 138 177; Mul 270 269 160; Mul 271 138 194; Mul 272 271 171;
  Add 270 270 272; Mul 272 160 269; Mul 273 171 271; Add 272 272 273; Sub 273 270 272; Add 274 268 273;
  Add 275 263 274; Add 276 258 275; Add 277 253 276; Mul 277 277 18; Mul 278 1 19; Mul 279 0 278;
  Mul 280 22 279; Sub 280 29 280; Mul 281 249 25; Add 280 280 281; Mul 281 22 19; Mul 282 25 28;
  Sub 281 281 282; Sub 281 27 281; Mul 281 0 281; Mul 282 1 281; Sub 283 280 282; Mul 284 1 60; Mul 285 42 284;
  Mul 286 47 285; Sub 286 66 286; Mul 287 254 9; Add 286 286 287; Mul 287 47 60; Mul 288 9 65; Sub 287 287 288;
  Sub 287 64 287; Mul 287 42 287; Mul 288 1 287; Sub 289 286 288; Mul 290 1 97; Mul 291 79 290; Mul 292 81 291;
  Sub 292 102 292; Mul 293 259 84; Add 292 292 293; Mul 293 81 97; Mul 294 84 103; Sub 293 293 294;
  Sub 293 101 293; Mul 293 79 293; Mul 294 1 293; Sub 295 292 294; Mul 296 1 134; Mul 297 116 296;
  Mul 298 135 297; Sub 298 140 298; Mul 299 264 121; Add 298 298 299; Mul 299 135 134; Mul 300 121 141;
  Sub 299 299 300; Sub 299 139 299; Mul 299 116 299; Mul 300 1 299; Sub 301 298 300; Mul 302 1 174;
  Mul 303 138 302; Mul 304 160 303; Sub 304 180 304; Mul 305 269 176; Add 304 304 305; Mul 305 160 174;
  Mul 306 176 129; Sub 305 305 306; Sub 305 179 305; Mul 305 138 305; Mul 306 1 305; Sub 307 304 306;
  Add 301 301 307; Add 295 295 301; Add 289 289 295; Add 283 283 289; Mul 283 283 8; Sub 277 277 283;
  Mul 283 251 25; Mul 308 30 279; Add 308 17 308; Sub 283 283 308].
Definition casadi_f4_8 : list instruction := [
  Mul 308 25 13; Mul 309 30 19; Sub 308 308 309; Sub 308 7 308; Mul 308 0 308; Mul 309 1 308; Add 310 283 309;
  Mul 311 256 9; Mul 312 67 285; Add 312 12 312; Sub 311 311 312; Mul 312 9 55; Mul 313 67 60; Sub 312 312 313;
  Sub 312 45 312; Mul 312 42 312; Mul 313 1 312; Add 314 311 313; Mul 315 261 84; Mul 316 104 291;
  Add 316 54 316; Sub 315 315 316; Mul 316 84 93; Mul 317 104 97; Sub 316 316 317; Sub 316 89 316;
  Mul 316 79 316; Mul 317 1 316; Add 318 315 317; Mul 319 266 121; Mul 320 142 297; Add 320 57 320;
  Sub 319 319 320; Mul 320 121 130; Mul 321 142 134; Sub 320 320 321; Sub 320 124 320; Mul 320 116 320;
  Mul 321 1 320; Add 322 319 321; Mul 323 271 176; Mul 324 171 303; Add 324 172 324; Sub 323 323 324;
  Mul 324 176 169; Mul 325 171 174; Sub 324 324 325; Sub 324 159 324; Mul 324 138 324; Mul 325 1 324;
  Add 326 323 325; Add 322 322 326; Add 318 318 322; Add 314 314 318; Add 310 310 314; Mul 310 310 248;
  Sub 277 277 310; Mul 34 34 21; Mul 310 38 3; Mul 32 32 26; Add 310 310 32; Add 34 34 310; Mul 310 34 21;
  Mul 38 38 21; Lit 21 (-90480000000000421) 21; Mul 21 21 3; Mul 36 36 26; Add 21 21 36; Add 38 38 21;
  Mul 21 38 3; Add 310 310 21; Add 21 310 61; Sq 36 30; Sq 26 25; Add 36 36 26; Mul 36 0 36; Add 36 21 36;
  Mul 26 39 36; Mul 34 34 15; Mul 38 38 2; Sub 34 34 38; Mul 41 41 10; Add 34 34 41; Mul 41 0 30; Mul 41 41 22;
  Sub 41 34 41; Mul 10 20 41; Sub 26 26 10; Mul 10 25 17; Mul 38 1 246; Mul 38 0 38; Mul 15 38 22; Add 10 10 15;
  Sq 15 30; Sq 32 22; Add 15 15 32; Mul 15 0 15; Add 15 98 15; Mul 32 15 39; Mul 327 40 278; Sub 32 32 327;
  Add 10 10 32; Sub 26 26 10; Lit 10 (-15254480000000001) 18; Sub 10 10 310; Add 10 10 33; Add 10 10 61;
  Mul 61 10 13; Mul 33 34 28; Add 61 61 33; Mul 33 35 19; Add 61 61 33; Mul 33 30 28; Mul 310 22 13;
  Sub 33 33 310; Sub 246 246 33; Mul 246 0 246; Mul 33 22 246; Mul 310 25 308; Sub 33 33 310; Add 61 61 33;
  Mul 61 1 61; Sub 26 26 61; Mul 69 69 51; Mul 33 73 3; Mul 71 71 48; Add 33 33 71; Add 69 69 33; Mul 33 69 51;
  Mul 73 73 51; Lit 51 66479999999999838 21; Mul 51 51 3; Mul 75 75 48; Add 51 51 75; Add 73 73 51; Mul 51 73 3;
  Add 33 33 51; Add 51 33 191; Sq 75 67; Sq 48 9; Add 75 75 48; Mul 75 42 75; Add 75 51 75; Mul 48 76 75;
  Mul 69 69 53; Mul 73 73 2; Sub 69 69 73; Mul 78 78 59; Sub 69 69 78].
Definition casadi_f4_9 : list instruction := [
  Mul 78 42 67; Mul 78 78 47; Sub 78 69 78; Mul 73 63 78; Sub 48 48 73; Mul 73 9 12; Mul 53 58 65; Mul 71 44 55;
  Sub 53 53 71; Mul 59 59 49; Mul 46 46 50; Add 59 59 46; Sub 53 53 59; Mul 59 1 53; Mul 59 42 59; Mul 46 59 47;
  Add 73 73 46; Sq 46 67; Sq 50 47; Add 46 46 50; Mul 46 42 46; Add 46 195 46; Mul 50 46 76; Mul 49 77 284;
  Sub 50 50 49; Add 73 73 50; Sub 48 48 73; Lit 73 (-43042000000000002) 19; Sub 73 73 33; Sub 73 73 70;
  Add 73 73 191; Mul 191 73 55; Mul 70 69 65; Add 191 191 70; Mul 70 72 60; Add 191 191 70; Mul 70 67 65;
  Mul 33 47 55; Sub 70 70 33; Sub 70 53 70; Mul 70 42 70; Mul 33 47 70; Mul 50 9 312; Sub 33 33 50;
  Add 191 191 33; Mul 191 1 191; Sub 48 48 191; Mul 106 106 83; Mul 33 110 3; Mul 108 108 91; Add 33 33 108;
  Add 106 106 33; Mul 33 106 83; Mul 110 110 83; Lit 83 8546999999999998 20; Mul 83 83 3; Mul 112 112 91;
  Add 83 83 112; Add 110 110 83; Mul 83 110 3; Add 33 33 83; Add 83 33 196; Sq 112 104; Sq 108 84;
  Add 112 112 108; Mul 112 79 112; Add 112 83 112; Mul 108 113 112; Mul 106 106 88; Mul 110 110 2;
  Sub 106 106 110; Mul 115 115 11; Sub 106 106 115; Mul 115 79 104; Mul 115 115 81; Sub 115 106 115;
  Mul 110 100 115; Sub 108 108 110; Mul 110 84 54; Mul 11 11 86; Mul 85 82 85; Sub 11 11 85; Mul 85 96 103;
  Mul 86 87 93; Sub 85 85 86; Add 11 11 85; Mul 85 1 11; Mul 85 79 85; Mul 86 85 81; Add 110 110 86; Sq 86 104;
  Sq 88 81; Add 86 86 88; Mul 86 79 86; Add 86 197 86; Mul 88 86 113; Mul 50 114 290; Sub 88 88 50;
  Add 110 110 88; Sub 108 108 110; Lit 110 29659999999999984 21; Sub 110 110 33; Sub 110 110 107;
  Add 110 110 196; Mul 196 110 93; Mul 107 106 103; Add 196 196 107; Mul 107 109 97; Add 196 196 107;
  Mul 107 104 103; Mul 33 81 93; Sub 107 107 33; Sub 107 11 107; Mul 107 79 107; Mul 33 81 107; Mul 88 84 316;
  Sub 33 33 88; Add 196 196 33; Mul 196 1 196; Sub 108 108 196; Mul 145 145 120; Mul 33 147 126; Mul 149 149 91;
  Add 33 33 149; Add 145 145 33; Mul 33 145 120; Mul 147 147 120; Mul 151 151 126; Mul 153 153 91;
  Add 151 151 153; Add 147 147 151; Mul 126 147 126; Add 33 33 126; Add 126 33 150; Sq 151 142; Sq 153 121;
  Add 151 151 153; Mul 151 116 151; Add 151 126 151; Mul 153 158 151; Mul 145 145 128; Mul 147 147 131;
  Add 145 145 147; Mul 152 152 118; Mul 155 155 119; Sub 152 152 155; Add 145 145 152; Mul 152 116 142;
  Mul 152 152 135].
Definition casadi_f4_10 : list instruction := [
  Sub 152 145 152; Mul 155 136 152; Sub 153 153 155; Mul 155 121 57; Mul 147 119 123; Mul 118 118 122;
  Mul 127 82 127; Sub 118 118 127; Add 147 147 118; Mul 118 133 141; Mul 127 125 130; Sub 118 118 127;
  Add 147 147 118; Mul 118 1 147; Mul 118 116 118; Mul 127 118 135; Add 155 155 127; Sq 127 142; Sq 122 135;
  Add 127 127 122; Mul 127 116 127; Add 127 198 127; Mul 122 127 158; Mul 131 154 296; Sub 122 122 131;
  Add 155 155 122; Sub 153 153 155; Lit 155 12074000000000001 20; Sub 155 155 33; Sub 155 155 146;
  Add 155 155 150; Mul 150 155 130; Mul 146 145 141; Add 150 150 146; Mul 146 148 134; Add 150 150 146;
  Mul 146 142 141; Mul 33 135 130; Sub 146 146 33; Sub 146 147 146; Mul 146 116 146; Mul 33 135 146;
  Mul 122 121 320; Sub 33 33 122; Add 150 150 33; Mul 150 1 150; Sub 153 153 150; Mul 181 181 120;
  Mul 183 183 168; Add 181 181 183; Mul 183 181 120; Mul 185 185 162; Mul 187 187 168; Add 185 185 187;
  Mul 162 185 162; Add 183 183 162; Add 162 183 186; Sq 187 171; Sq 168 176; Add 187 187 168; Mul 187 138 187;
  Add 187 162 187; Mul 168 194 187; Mul 181 181 128; Mul 185 185 170; Add 181 181 185; Mul 188 188 175;
  Mul 190 190 119; Sub 188 188 190; Add 181 181 188; Mul 188 138 171; Mul 188 188 160; Sub 188 181 188;
  Mul 190 177 188; Sub 168 168 190; Mul 190 176 172; Mul 123 119 123; Mul 175 175 165; Mul 161 161 164;
  Sub 175 175 161; Add 123 123 175; Mul 175 92 129; Mul 161 163 169; Sub 175 175 161; Add 123 123 175;
  Mul 175 1 123; Mul 175 138 175; Mul 161 175 160; Add 190 190 161; Sq 161 171; Sq 164 160; Add 161 161 164;
  Mul 161 138 161; Add 161 199 161; Mul 164 161 194; Mul 165 189 302; Sub 164 164 165; Add 190 190 164;
  Sub 168 168 190; Lit 190 (-67095999999999985) 20; Sub 190 190 183; Sub 190 190 182; Add 190 190 186;
  Mul 186 190 169; Mul 182 181 129; Add 186 186 182; Mul 182 184 174; Add 186 186 182; Mul 182 171 129;
  Mul 183 160 169; Sub 182 182 183; Sub 182 123 182; Mul 182 138 182; Mul 183 160 182; Mul 164 176 324;
  Sub 183 183 164; Add 186 186 183; Mul 186 1 186; Sub 168 168 186; Add 153 153 168; Add 108 108 153;
  Add 48 48 108; Add 26 26 48; Mul 26 26 3; Mul 183 39 41; Sq 164 22; Sq 165 25; Add 164 164 165; Mul 0 0 164;
  Add 0 10 0; Mul 164 20 0; Sub 183 183 164; Mul 164 25 29; Mul 165 38 30; Add 164 164 165; Mul 165 37 278;
  Mul 185 15 20; Sub 165 165 185; Add 164 164 165; Sub 183 183 164; Mul 164 34 13; Mul 165 21 28;
  Add 164 164 165; Mul 165 43 19; Add 164 164 165; Mul 165 25 281; Mul 185 30 246; Sub 165 165 185;
  Add 164 164 165].
Definition casadi_f4_11 : list instruction := [
  Mul 164 1 164; Add 183 183 164; Mul 165 76 78; Sq 185 47; Sq 170 9; Add 185 185 170; Mul 42 42 185;
  Add 42 73 42; Mul 185 63 42; Sub 165 165 185; Mul 185 9 66; Mul 170 59 67; Add 185 185 170; Mul 170 74 284;
  Mul 33 46 63; Sub 170 170 33; Add 185 185 170; Sub 165 165 185; Mul 185 69 55; Mul 170 51 65; Add 185 185 170;
  Mul 170 80 60; Add 185 185 170; Mul 170 9 287; Mul 33 67 70; Sub 170 170 33; Add 185 185 170; Mul 185 1 185;
  Add 165 165 185; Mul 170 113 115; Sq 33 81; Sq 122 84; Add 33 33 122; Mul 79 79 33; Add 79 110 79;
  Mul 33 100 79; Sub 170 170 33; Mul 33 84 102; Mul 122 85 104; Add 33 33 122; Mul 122 111 290; Mul 131 86 100;
  Sub 122 122 131; Add 33 33 122; Sub 170 170 33; Mul 33 106 93; Mul 122 83 103; Add 33 33 122; Mul 122 117 97;
  Add 33 33 122; Mul 122 84 293; Mul 131 104 107; Sub 122 122 131; Add 33 33 122; Mul 33 1 33; Add 170 170 33;
  Mul 122 158 152; Sq 131 135; Sq 149 121; Add 131 131 149; Mul 116 116 131; Add 116 155 116; Mul 131 136 116;
  Sub 122 122 131; Mul 131 121 140; Mul 149 118 142; Add 131 131 149; Mul 149 157 296; Mul 88 127 136;
  Sub 149 149 88; Add 131 131 149; Sub 122 122 131; Mul 131 145 130; Mul 149 126 141; Add 131 131 149;
  Mul 149 156 134; Add 131 131 149; Mul 149 121 299; Mul 88 142 146; Sub 149 149 88; Add 131 131 149;
  Mul 131 1 131; Add 122 122 131; Mul 149 194 188; Sq 88 160; Sq 50 176; Add 88 88 50; Mul 88 138 88;
  Add 88 190 88; Mul 50 177 88; Sub 149 149 50; Mul 50 176 180; Mul 49 175 171; Add 50 50 49; Mul 49 193 302;
  Mul 71 161 177; Sub 49 49 71; Add 50 50 49; Sub 149 149 50; Mul 50 181 169; Mul 49 162 129; Add 50 50 49;
  Mul 49 192 174; Add 50 50 49; Mul 49 176 305; Mul 71 171 182; Sub 49 49 71; Add 50 50 49; Mul 50 1 50;
  Add 149 149 50; Add 122 122 149; Add 170 170 122; Add 165 165 170; Add 183 183 165; Mul 183 183 2;
  Sub 26 26 183; Add 277 277 26; Add 218 218 277; Mul 218 218 14; Add 23 23 218; Mul 218 60 3; Mul 277 232 218;
  Mul 26 60 2; Mul 183 238 26; Add 277 277 183; Mul 183 55 3; Mul 49 65 2; Add 183 183 49; Mul 210 210 183;
  Sub 277 277 210; Lit 210 182870387 8; Mul 49 53 2; Mul 71 52 3; Mul 310 60 71; Mul 58 58 3; Mul 44 44 2;
  Add 58 58 44; Mul 44 55 58; Add 310 310 44; Add 49 49 310; Mul 310 222 218; Mul 44 223 183; Add 310 310 44;
  Sub 310 49 310; Mul 310 210 310; Mul 44 223 310; Mul 53 53 3; Mul 32 65 58; Mul 52 52 2].
Definition casadi_f4_12 : list instruction := [
  Mul 327 60 52; Add 32 32 327; Sub 53 53 32; Mul 32 227 183; Mul 327 222 26; Add 32 32 327; Add 32 53 32;
  Mul 32 210 32; Mul 327 227 32; Sub 44 44 327; Add 277 277 44; Mul 314 314 71; Mul 289 289 52; Mul 276 276 58;
  Sub 289 289 276; Add 314 314 289; Mul 165 165 2; Mul 48 48 3; Sub 165 165 48; Add 314 314 165;
  Add 277 277 314; Mul 277 277 56; Add 23 23 277; Mul 277 97 3; Mul 314 230 277; Mul 165 97 2; Mul 48 237 165;
  Add 314 314 48; Mul 48 93 3; Mul 289 103 2; Add 48 48 289; Mul 203 203 48; Sub 314 314 203;
  Lit 203 11888516899999999 16; Mul 289 11 2; Mul 276 90 3; Mul 44 97 276; Mul 96 96 3; Mul 87 87 2;
  Add 96 96 87; Mul 87 93 96; Add 44 44 87; Add 289 289 44; Mul 44 214 277; Mul 87 215 48; Add 44 44 87;
  Sub 44 289 44; Mul 44 203 44; Mul 87 215 44; Mul 11 11 3; Mul 327 103 96; Mul 90 90 2; Mul 328 97 90;
  Add 327 327 328; Sub 11 11 327; Mul 327 219 48; Mul 328 214 165; Add 327 327 328; Add 327 11 327;
  Mul 327 203 327; Mul 328 219 327; Sub 87 87 328; Add 314 314 87; Mul 318 318 276; Mul 295 295 90;
  Mul 275 275 96; Sub 295 295 275; Add 318 318 295; Mul 170 170 2; Mul 108 108 3; Sub 170 170 108;
  Add 318 318 170; Add 314 314 318; Mul 314 314 95; Add 23 23 314; Mul 314 134 91; Mul 318 141 82;
  Sub 314 314 318; Mul 318 229 314; Mul 170 130 82; Mul 108 134 94; Sub 170 170 108; Mul 108 236 170;
  Add 318 318 108; Mul 108 141 94; Mul 295 130 91; Sub 108 108 295; Mul 295 200 108; Add 318 318 295;
  Lit 295 77563424999999997 17; Mul 275 139 82; Mul 87 147 94; Sub 275 275 87; Mul 87 6 91; Mul 328 125 82;
  Sub 87 87 328; Mul 328 134 87; Mul 125 125 94; Mul 329 133 91; Sub 125 125 329; Mul 329 130 125;
  Sub 328 328 329; Add 275 275 328; Mul 328 206 314; Mul 329 207 108; Sub 328 328 329; Sub 328 275 328;
  Mul 328 295 328; Mul 329 207 328; Mul 147 147 91; Mul 330 124 82; Sub 147 147 330; Mul 330 141 125;
  Mul 133 133 82; Mul 6 6 94; Sub 133 133 6; Mul 6 134 133; Sub 330 330 6; Add 147 147 330; Mul 330 211 108;
  Mul 6 206 170; Sub 330 330 6; Sub 330 147 330; Mul 330 295 330; Mul 6 211 330; Sub 329 329 6; Add 318 318 329;
  Mul 329 322 87; Mul 6 301 133; Mul 331 274 125; Add 6 6 331; Add 329 329 6; Mul 6 122 94; Mul 331 153 91;
  Mul 332 144 82; Add 331 331 332; Add 6 6 331; Sub 329 329 6; Add 318 318 329; Mul 329 318 132; Add 23 23 329;
  Mul 329 129 119; Mul 6 174 120; Sub 329 329 6; Mul 6 184 329; Mul 331 174 128; Mul 332 169 119;
  Sub 331 331 332; Mul 332 192 331].
Definition casadi_f4_13 : list instruction := [
  Add 6 6 332; Mul 332 169 120; Mul 333 129 128; Sub 332 332 333; Mul 333 199 332; Add 6 6 333; Mul 333 123 128;
  Mul 334 179 119; Sub 333 333 334; Mul 334 163 119; Mul 335 167 120; Sub 334 334 335; Mul 335 174 334;
  Mul 336 92 120; Mul 163 163 128; Sub 336 336 163; Mul 163 169 336; Sub 335 335 163; Add 333 333 335;
  Mul 335 176 329; Mul 163 171 332; Sub 335 335 163; Sub 333 333 335; Mul 333 138 333; Mul 335 171 333;
  Mul 163 159 119; Mul 123 123 120; Sub 163 163 123; Mul 123 129 336; Mul 167 167 128; Mul 92 92 119;
  Sub 167 167 92; Mul 92 174 167; Sub 123 123 92; Add 163 163 123; Mul 123 160 332; Mul 92 176 331;
  Sub 123 123 92; Sub 163 163 123; Mul 163 138 163; Mul 123 160 163; Sub 335 335 123; Add 6 6 335;
  Mul 335 326 334; Mul 123 307 167; Mul 92 273 336; Add 123 123 92; Add 335 335 123; Mul 123 149 128;
  Mul 92 168 120; Mul 337 16 119; Add 92 92 337; Add 123 123 92; Add 335 335 123; Add 6 6 335; Mul 335 6 166;
  Add 23 23 335; Out 0 0 23; Add 268 268 273; Add 263 263 268; Add 258 258 263; Add 253 253 258; Mul 253 18 253;
  Add 280 280 282; Add 286 286 288; Add 292 292 294; Add 298 298 300; Add 304 304 306; Add 298 298 304;
  Add 292 292 298; Add 286 286 292; Add 280 280 286; Mul 280 8 280; Sub 253 253 280; Sub 283 283 309;
  Sub 311 311 313; Sub 315 315 317; Sub 319 319 321; Sub 323 323 325; Add 319 319 323; Add 315 315 319;
  Add 311 311 315; Add 283 283 311; Mul 283 248 283; Sub 253 253 283; Mul 283 278 40; Mul 280 39 15;
  Sub 283 283 280; Mul 280 22 38; Mul 23 17 25; Add 280 280 23; Mul 23 41 20; Mul 335 36 39; Sub 23 23 335;
  Add 280 280 23; Sub 283 283 280; Add 283 283 61; Mul 61 284 77; Mul 280 76 46; Sub 61 61 280; Mul 280 47 59;
  Mul 23 12 9; Add 280 280 23; Mul 23 78 63; Mul 335 75 76; Sub 23 23 335; Add 280 280 23; Sub 61 61 280;
  Add 61 61 191; Mul 191 290 114; Mul 280 113 86; Sub 191 191 280; Mul 280 81 85; Mul 23 54 84; Add 280 280 23;
  Mul 23 115 100; Mul 335 112 113; Sub 23 23 335; Add 280 280 23; Sub 191 191 280; Add 191 191 196;
  Mul 196 296 154; Mul 280 158 127; Sub 196 196 280; Mul 280 135 118; Mul 23 57 121; Add 280 280 23;
  Mul 23 152 136; Mul 335 151 158; Sub 23 23 335; Add 280 280 23; Sub 196 196 280; Add 196 196 150;
  Mul 150 302 189; Mul 280 194 161; Sub 150 150 280; Mul 280 160 175; Mul 23 172 176; Add 280 280 23;
  Mul 23 188 177; Mul 335 187 194; Sub 23 23 335; Add 280 280 23; Sub 150 150 280; Add 150 150 186;
  Add 196 196 150; Add 191 191 196; Add 61 61 191; Add 283 283 61].
Definition casadi_f4_14 : list instruction := [
  Mul 283 3 283; Mul 15 20 15; Mul 186 278 37; Sub 15 15 186; Mul 186 30 38; Mul 280 29 25; Add 186 186 280;
  Mul 280 0 20; Mul 23 41 39; Sub 280 280 23; Add 186 186 280; Sub 15 15 186; Sub 15 15 164; Mul 46 63 46;
  Mul 164 284 74; Sub 46 46 164; Mul 164 67 59; Mul 186 66 9; Add 164 164 186; Mul 186 42 63; Mul 280 78 76;
  Sub 186 186 280; Add 164 164 186; Sub 46 46 164; Sub 46 46 185; Mul 86 100 86; Mul 185 290 111; Sub 86 86 185;
  Mul 185 104 85; Mul 164 102 84; Add 185 185 164; Mul 164 79 100; Mul 186 115 113; Sub 164 164 186;
  Add 185 185 164; Sub 86 86 185; Sub 86 86 33; Mul 127 136 127; Mul 33 296 157; Sub 127 127 33; Mul 33 142 118;
  Mul 185 140 121; Add 33 33 185; Mul 185 116 136; Mul 164 152 158; Sub 185 185 164; Add 33 33 185;
  Sub 127 127 33; Sub 127 127 131; Mul 161 177 161; Mul 131 302 193; Sub 161 161 131; Mul 131 171 175;
  Mul 33 180 176; Add 131 131 33; Mul 33 88 177; Mul 185 188 194; Sub 33 33 185; Add 131 131 33;
  Sub 161 161 131; Sub 161 161 50; Add 127 127 161; Add 86 86 127; Add 46 46 86; Add 15 15 46; Mul 15 2 15;
  Sub 283 283 15; Add 253 253 283; Mul 253 253 5; Mul 27 27 3; Mul 7 7 2; Add 27 27 7; Mul 7 28 248;
  Mul 283 13 8; Sub 7 7 283; Add 27 27 7; Mul 7 235 234; Mul 283 241 240; Sub 7 7 283; Sub 7 27 7;
  Mul 243 243 7; Mul 7 279 22; Mul 283 25 249; Add 283 29 283; Sub 7 7 283; Sub 283 7 282; Mul 15 285 47;
  Mul 50 9 254; Add 50 66 50; Sub 15 15 50; Sub 50 15 288; Mul 131 291 81; Mul 33 84 259; Add 33 102 33;
  Sub 131 131 33; Sub 33 131 294; Mul 185 297 135; Mul 164 121 264; Add 164 140 164; Sub 185 185 164;
  Sub 164 185 300; Mul 186 303 160; Mul 280 176 269; Add 280 180 280; Sub 186 186 280; Sub 280 186 306;
  Add 164 164 280; Add 33 33 164; Add 50 50 33; Add 283 283 50; Mul 283 283 3; Mul 23 25 251; Sub 23 17 23;
  Mul 335 279 30; Add 23 23 335; Add 335 23 309; Mul 123 9 256; Sub 123 12 123; Mul 92 285 67; Add 123 123 92;
  Add 92 123 313; Mul 337 84 261; Sub 337 54 337; Mul 338 291 104; Add 337 337 338; Add 338 337 317;
  Mul 339 121 266; Sub 339 57 339; Mul 340 297 142; Add 339 339 340; Add 340 339 321; Mul 341 176 271;
  Sub 341 172 341; Mul 342 303 171; Add 341 341 342; Add 342 341 325; Add 340 340 342; Add 338 338 340;
  Add 92 92 338; Add 335 335 92; Mul 335 335 2; Sub 283 283 335; Add 283 243 283; Mul 283 18 283;
  Mul 335 249 22; Mul 343 25 279; Add 343 343 252; Sub 335 335 343; Mul 252 22 249].
Definition casadi_f4_15 : list instruction := [
  Mul 279 279 25; Add 279 279 250; Sub 252 252 279; Sub 335 335 252; Mul 252 254 47; Mul 250 9 285;
  Add 250 250 257; Sub 252 252 250; Mul 257 47 254; Mul 285 285 9; Add 285 285 255; Sub 257 257 285;
  Sub 252 252 257; Mul 257 259 81; Mul 255 84 291; Add 255 255 262; Sub 257 257 255; Mul 262 81 259;
  Mul 291 291 84; Add 291 291 260; Sub 262 262 291; Sub 257 257 262; Mul 262 264 135; Mul 260 121 297;
  Add 260 260 267; Sub 262 262 260; Mul 267 135 264; Mul 297 297 121; Add 297 297 265; Sub 267 267 297;
  Sub 262 262 267; Mul 267 269 160; Mul 265 176 303; Add 265 265 272; Sub 267 267 265; Mul 272 160 269;
  Mul 303 303 176; Add 303 303 270; Sub 272 272 303; Sub 267 267 272; Add 272 262 267; Add 270 257 272;
  Add 344 252 270; Add 345 335 344; Mul 345 345 3; Mul 346 249 30; Mul 347 22 251; Add 347 38 347;
  Sub 346 346 347; Mul 246 1 246; Sub 347 346 246; Mul 348 254 67; Mul 349 47 256; Add 349 59 349;
  Sub 348 348 349; Mul 70 1 70; Sub 349 348 70; Mul 350 259 104; Mul 351 81 261; Add 351 85 351;
  Sub 350 350 351; Mul 107 1 107; Sub 351 350 107; Mul 352 264 142; Mul 353 135 266; Add 353 118 353;
  Sub 352 352 353; Mul 146 1 146; Sub 353 352 146; Mul 354 269 171; Mul 355 160 271; Add 355 175 355;
  Sub 354 354 355; Mul 182 1 182; Sub 355 354 182; Add 353 353 355; Add 351 351 353; Add 349 349 351;
  Add 347 347 349; Mul 347 347 2; Sub 345 345 347; Add 345 245 345; Mul 345 8 345; Sub 283 283 345;
  Mul 249 30 249; Sub 249 38 249; Mul 345 251 22; Add 249 249 345; Add 345 249 246; Mul 254 67 254;
  Sub 254 59 254; Mul 347 256 47; Add 254 254 347; Add 347 254 70; Mul 259 104 259; Sub 259 85 259;
  Mul 356 261 81; Add 259 259 356; Add 356 259 107; Mul 264 142 264; Sub 264 118 264; Mul 357 266 135;
  Add 264 264 357; Add 357 264 146; Mul 269 171 269; Sub 269 175 269; Mul 358 271 160; Add 269 269 358;
  Add 358 269 182; Add 357 357 358; Add 356 356 357; Add 347 347 356; Add 345 345 347; Mul 345 345 3;
  Mul 359 251 30; Sub 359 359 343; Mul 251 30 251; Sub 251 251 279; Sub 359 359 251; Mul 251 256 67;
  Sub 251 251 250; Mul 256 67 256; Sub 256 256 285; Sub 251 251 256; Mul 256 261 104; Sub 256 256 255;
  Mul 261 104 261; Sub 261 261 291; Sub 256 256 261; Mul 261 266 142; Sub 261 261 260; Mul 266 142 266;
  Sub 266 266 297; Sub 261 261 266; Mul 266 271 171; Sub 266 266 265; Mul 271 171 271; Sub 271 271 303;
  Sub 266 266 271; Add 271 261 266; Add 303 256 271; Add 265 251 303; Add 297 359 265; Mul 297 297 2;
  Sub 345 345 297; Add 345 4 345; Mul 345 248 345; Sub 283 283 345; Mul 239 239 226].
Definition casadi_f4_16 : list instruction := [
  Add 145 145 181; Mul 345 201 202; Mul 345 345 204; Sub 145 145 345; Add 106 106 145; Mul 345 205 209;
  Mul 345 345 212; Sub 106 106 345; Add 69 69 106; Mul 345 213 217; Mul 345 345 220; Sub 69 69 345;
  Add 34 34 69; Mul 345 221 225; Mul 345 345 228; Sub 34 34 345; Mul 345 34 234; Add 126 126 162; Sq 202 202;
  Sq 297 231; Add 202 202 297; Mul 202 201 202; Add 126 126 202; Add 83 83 126; Sq 209 209; Sq 202 208;
  Add 209 209 202; Mul 209 205 209; Add 83 83 209; Add 51 51 83; Sq 217 217; Sq 209 216; Add 217 217 209;
  Mul 217 213 217; Add 51 51 217; Add 21 21 51; Sq 225 225; Sq 217 224; Add 225 225 217; Mul 225 221 225;
  Add 21 21 225; Mul 21 21 240; Add 345 345 21; Sub 239 239 345; Mul 4 244 4; Mul 241 241 243; Sub 4 4 241;
  Add 239 239 4; Add 7 7 282; Add 15 15 288; Add 131 131 294; Add 185 185 300; Add 186 186 306; Add 185 185 186;
  Add 131 131 185; Add 15 15 131; Add 7 7 15; Mul 7 7 18; Add 262 262 267; Add 257 257 262; Add 252 252 257;
  Add 335 335 252; Mul 335 335 8; Sub 7 7 335; Sub 249 249 246; Sub 254 254 70; Sub 259 259 107;
  Sub 264 264 146; Sub 269 269 182; Add 264 264 269; Add 259 259 264; Add 254 254 259; Add 249 249 254;
  Mul 249 249 248; Sub 7 7 249; Mul 249 278 41; Mul 335 39 37; Sub 249 249 335; Mul 335 22 17; Mul 306 38 25;
  Add 306 306 24; Sub 335 335 306; Mul 24 17 22; Mul 25 25 38; Add 25 25 31; Sub 24 24 25; Add 335 335 24;
  Mul 24 37 39; Mul 31 41 278; Sub 24 24 31; Add 335 335 24; Sub 249 249 335; Mul 335 284 78; Mul 24 76 74;
  Sub 335 335 24; Mul 24 47 12; Mul 31 59 9; Add 31 31 62; Sub 24 24 31; Mul 62 12 47; Mul 9 9 59; Add 9 9 68;
  Sub 62 62 9; Add 24 24 62; Mul 62 74 76; Mul 68 78 284; Sub 62 62 68; Add 24 24 62; Sub 335 335 24;
  Mul 24 290 115; Mul 62 113 111; Sub 24 24 62; Mul 62 81 54; Mul 68 85 84; Add 68 68 99; Sub 62 62 68;
  Mul 99 54 81; Mul 84 84 85; Add 84 84 105; Sub 99 99 84; Add 62 62 99; Mul 99 111 113; Mul 105 115 290;
  Sub 99 99 105; Add 62 62 99; Sub 24 24 62; Mul 62 296 152; Mul 99 158 157; Sub 62 62 99; Mul 99 135 57;
  Mul 105 118 121; Add 105 105 137; Sub 99 99 105; Mul 137 57 135; Mul 121 121 118; Add 121 121 143;
  Sub 137 137 121; Add 99 99 137; Mul 137 157 158; Mul 143 152 296; Sub 137 137 143; Add 99 99 137;
  Sub 62 62 99; Mul 99 302 188; Mul 137 194 193; Sub 99 99 137; Mul 137 160 172; Mul 143 175 176;
  Add 143 143 178].
Definition casadi_f4_17 : list instruction := [
  Sub 137 137 143; Mul 178 172 160; Mul 175 176 175; Add 175 175 173; Sub 178 178 175; Add 137 137 178;
  Mul 178 193 194; Mul 173 188 302; Sub 178 178 173; Add 137 137 178; Sub 99 99 137; Add 62 62 99; Add 24 24 62;
  Add 335 335 24; Add 249 249 335; Mul 249 249 3; Mul 137 278 0; Mul 178 39 40; Sub 137 137 178; Mul 178 22 29;
  Mul 173 17 30; Add 178 178 173; Mul 173 36 278; Mul 118 37 20; Sub 173 173 118; Add 178 178 173;
  Sub 137 137 178; Mul 35 35 13; Mul 43 43 28; Add 35 35 43; Mul 98 98 19; Add 35 35 98; Mul 308 30 308;
  Mul 281 22 281; Sub 308 308 281; Add 35 35 308; Mul 35 1 35; Sub 137 137 35; Mul 308 284 42; Mul 281 76 77;
  Sub 308 308 281; Mul 281 47 66; Mul 98 12 67; Add 281 281 98; Mul 98 75 284; Mul 19 74 63; Sub 98 98 19;
  Add 281 281 98; Sub 308 308 281; Mul 72 72 55; Mul 80 80 65; Add 72 72 80; Mul 195 195 60; Add 72 72 195;
  Mul 312 67 312; Mul 287 47 287; Sub 312 312 287; Add 72 72 312; Mul 72 1 72; Sub 308 308 72; Mul 312 290 79;
  Mul 287 113 114; Sub 312 312 287; Mul 287 81 102; Mul 195 54 104; Add 287 287 195; Mul 195 112 290;
  Mul 60 111 100; Sub 195 195 60; Add 287 287 195; Sub 312 312 287; Mul 109 109 93; Mul 117 117 103;
  Add 109 109 117; Mul 197 197 97; Add 109 109 197; Mul 316 104 316; Mul 293 81 293; Sub 316 316 293;
  Add 109 109 316; Mul 109 1 109; Sub 312 312 109; Mul 316 296 116; Mul 293 158 154; Sub 316 316 293;
  Mul 293 135 140; Mul 197 57 142; Add 293 293 197; Mul 197 151 296; Mul 97 157 136; Sub 197 197 97;
  Add 293 293 197; Sub 316 316 293; Mul 148 148 130; Mul 156 156 141; Add 148 148 156; Mul 198 198 134;
  Add 148 148 198; Mul 320 142 320; Mul 299 135 299; Sub 320 320 299; Add 148 148 320; Mul 148 1 148;
  Sub 316 316 148; Mul 320 302 88; Mul 299 194 189; Sub 320 320 299; Mul 299 160 180; Mul 198 172 171;
  Add 299 299 198; Mul 198 187 302; Mul 134 193 177; Sub 198 198 134; Add 299 299 198; Sub 320 320 299;
  Mul 299 184 169; Mul 198 192 129; Add 299 299 198; Mul 174 199 174; Add 299 299 174; Mul 324 171 324;
  Mul 305 160 305; Sub 324 324 305; Add 299 299 324; Mul 1 1 299; Sub 320 320 1; Add 316 316 320;
  Add 312 312 316; Add 308 308 312; Add 137 137 308; Mul 137 137 2; Sub 249 249 137; Add 7 7 249; Add 239 239 7;
  Mul 239 3 239; Mul 233 233 226; Add 155 155 190; Sq 204 204; Sq 231 231; Add 204 204 231; Mul 201 201 204;
  Add 155 155 201; Add 110 110 155; Sq 212 212; Sq 208 208; Add 212 212 208; Mul 205 205 212; Add 110 110 205;
  Add 73 73 110].
Definition casadi_f4_18 : list instruction := [
  Sq 220 220; Sq 216 216; Add 220 220 216; Mul 213 213 220; Add 73 73 213; Add 10 10 73; Sq 228 228; Sq 224 224;
  Add 228 228 224; Mul 221 221 228; Add 10 10 221; Mul 10 10 234; Mul 34 34 240; Add 10 10 34; Sub 233 233 10;
  Mul 235 235 243; Mul 244 244 245; Sub 235 235 244; Add 233 233 235; Sub 23 23 309; Sub 123 123 313;
  Sub 337 337 317; Sub 339 339 321; Sub 341 341 325; Add 339 339 341; Add 337 337 339; Add 123 123 337;
  Add 23 23 123; Mul 23 23 18; Add 346 346 246; Add 348 348 70; Add 350 350 107; Add 352 352 146;
  Add 354 354 182; Add 352 352 354; Add 350 350 352; Add 348 348 350; Add 346 346 348; Mul 346 346 8;
  Sub 23 23 346; Add 261 261 266; Add 256 256 261; Add 251 251 256; Add 359 359 251; Mul 359 359 248;
  Sub 23 23 359; Mul 37 20 37; Mul 36 278 36; Sub 37 37 36; Mul 17 30 17; Mul 22 29 22; Add 17 17 22;
  Mul 39 40 39; Mul 0 0 278; Sub 39 39 0; Add 17 17 39; Sub 37 37 17; Add 37 37 35; Mul 74 63 74; Mul 75 284 75;
  Sub 74 74 75; Mul 12 67 12; Mul 47 66 47; Add 12 12 47; Mul 76 77 76; Mul 42 42 284; Sub 76 76 42;
  Add 12 12 76; Sub 74 74 12; Add 74 74 72; Mul 111 100 111; Mul 112 290 112; Sub 111 111 112; Mul 54 104 54;
  Mul 81 102 81; Add 54 54 81; Mul 113 114 113; Mul 79 79 290; Sub 113 113 79; Add 54 54 113; Sub 111 111 54;
  Add 111 111 109; Mul 157 136 157; Mul 151 296 151; Sub 157 157 151; Mul 57 142 57; Mul 135 140 135;
  Add 57 57 135; Mul 158 154 158; Mul 116 116 296; Sub 158 158 116; Add 57 57 158; Sub 157 157 57;
  Add 157 157 148; Mul 193 177 193; Mul 187 302 187; Sub 193 193 187; Mul 172 171 172; Mul 187 180 160;
  Add 172 172 187; Mul 194 189 194; Mul 88 88 302; Sub 194 194 88; Add 172 172 194; Sub 193 193 172;
  Add 193 193 1; Add 157 157 193; Add 111 111 157; Add 74 74 111; Add 37 37 74; Mul 37 37 3; Mul 1 20 40;
  Mul 172 278 41; Sub 1 1 172; Mul 172 30 29; Sub 172 172 306; Mul 29 29 30; Sub 29 29 25; Add 172 172 29;
  Mul 41 41 278; Mul 40 40 20; Sub 41 41 40; Add 172 172 41; Sub 1 1 172; Mul 172 63 77; Mul 41 284 78;
  Sub 172 172 41; Mul 41 67 66; Sub 41 41 31; Mul 66 66 67; Sub 66 66 9; Add 41 41 66; Mul 78 78 284;
  Mul 77 77 63; Sub 78 78 77; Add 41 41 78; Sub 172 172 41; Mul 41 100 114; Mul 78 290 115; Sub 41 41 78;
  Mul 78 104 102; Sub 78 78 68; Mul 102 102 104; Sub 102 102 84; Add 78 78 102; Mul 115 115 290;
  Mul 114 114 100; Sub 115 115 114; Add 78 78 115].
Definition casadi_f4_19 : list instruction := [
  Sub 41 41 78; Mul 78 136 154; Mul 115 296 152; Sub 78 78 115; Mul 115 142 140; Sub 115 115 105;
  Mul 140 140 142; Sub 140 140 121; Add 115 115 140; Mul 152 152 296; Mul 154 154 136; Sub 152 152 154;
  Add 115 115 152; Sub 78 78 115; Mul 115 177 189; Mul 152 302 188; Sub 115 115 152; Mul 152 171 180;
  Sub 152 152 143; Mul 180 180 171; Sub 180 180 175; Add 152 152 180; Mul 188 188 302; Mul 189 189 177;
  Sub 188 188 189; Add 152 152 188; Sub 115 115 152; Add 78 78 115; Add 41 41 78; Add 172 172 41; Add 1 1 172;
  Mul 1 1 2; Sub 37 37 1; Add 23 23 37; Add 233 233 23; Mul 233 2 233; Sub 239 239 233; Add 283 283 239;
  Mul 283 283 14; Add 253 253 283; Mul 55 55 52; Mul 65 65 71; Sub 55 55 65; Mul 64 64 3; Mul 45 45 2;
  Add 64 64 45; Sub 55 55 64; Mul 64 223 26; Mul 45 227 218; Sub 64 64 45; Sub 64 55 64; Mul 64 210 64;
  Mul 45 92 2; Mul 65 50 3; Sub 45 45 65; Add 45 64 45; Mul 65 18 45; Mul 283 349 2; Mul 239 344 3;
  Sub 283 283 239; Add 283 310 283; Mul 239 8 283; Sub 65 65 239; Mul 239 265 2; Mul 233 347 3; Sub 239 239 233;
  Add 239 32 239; Mul 233 248 239; Sub 65 65 233; Mul 233 69 218; Mul 23 51 26; Add 233 233 23; Mul 23 238 183;
  Sub 233 233 23; Mul 32 222 32; Mul 23 223 64; Sub 32 32 23; Add 233 233 32; Mul 32 254 71; Mul 23 252 52;
  Mul 37 15 58; Sub 23 23 37; Add 32 32 23; Mul 23 308 2; Mul 37 335 3; Sub 23 23 37; Add 32 32 23;
  Add 233 233 32; Mul 32 3 233; Mul 23 73 218; Mul 37 69 26; Add 23 23 37; Mul 37 232 183; Sub 23 23 37;
  Mul 64 227 64; Mul 310 222 310; Sub 64 64 310; Add 23 23 64; Mul 64 251 71; Mul 310 348 52; Mul 37 123 58;
  Sub 310 310 37; Add 64 64 310; Mul 310 172 2; Mul 37 74 3; Sub 310 310 37; Add 64 64 310; Add 23 23 64;
  Mul 64 2 23; Sub 32 32 64; Add 65 65 32; Mul 65 65 56; Add 253 253 65; Mul 93 93 90; Mul 103 103 276;
  Sub 93 93 103; Mul 101 101 3; Mul 89 89 2; Add 101 101 89; Sub 93 93 101; Mul 101 215 165; Mul 89 219 277;
  Sub 101 101 89; Sub 101 93 101; Mul 101 203 101; Mul 89 338 2; Mul 103 33 3; Sub 89 89 103; Add 89 101 89;
  Mul 103 18 89; Mul 65 351 2; Mul 32 270 3; Sub 65 65 32; Add 65 44 65; Mul 32 8 65; Sub 103 103 32;
  Mul 32 303 2; Mul 64 356 3; Sub 32 32 64; Add 32 327 32; Mul 64 248 32; Sub 103 103 64; Mul 64 106 277;
  Mul 310 83 165; Add 64 64 310; Mul 310 237 48; Sub 64 64 310; Mul 327 214 327; Mul 310 215 101].
Definition casadi_f4_20 : list instruction := [
  Sub 327 327 310; Add 64 64 327; Mul 327 259 276; Mul 310 257 90; Mul 37 131 96; Sub 310 310 37;
  Add 327 327 310; Mul 310 312 2; Mul 37 24 3; Sub 310 310 37; Add 327 327 310; Add 64 64 327; Mul 327 3 64;
  Mul 310 110 277; Mul 37 106 165; Add 310 310 37; Mul 37 230 48; Sub 310 310 37; Mul 101 219 101;
  Mul 44 214 44; Sub 101 101 44; Add 310 310 101; Mul 101 256 276; Mul 44 350 90; Mul 37 337 96; Sub 44 44 37;
  Add 101 101 44; Mul 44 41 2; Mul 37 111 3; Sub 44 44 37; Add 101 101 44; Add 310 310 101; Mul 101 2 310;
  Sub 327 327 101; Add 103 103 327; Mul 103 103 95; Add 253 253 103; Mul 124 124 94; Mul 139 139 91;
  Sub 124 124 139; Mul 130 130 133; Mul 141 141 87; Sub 130 130 141; Add 124 124 130; Mul 130 207 170;
  Mul 141 211 314; Sub 130 130 141; Sub 130 124 130; Mul 130 295 130; Mul 141 340 94; Mul 139 164 91;
  Mul 103 268 82; Add 139 139 103; Add 141 141 139; Sub 141 130 141; Mul 139 18 141; Mul 103 353 94;
  Mul 327 272 91; Mul 101 298 82; Add 327 327 101; Add 103 103 327; Sub 103 328 103; Mul 327 8 103;
  Sub 139 139 327; Mul 327 271 94; Mul 101 357 91; Mul 44 319 82; Add 101 101 44; Add 327 327 101;
  Sub 327 330 327; Mul 101 248 327; Sub 139 139 101; Mul 101 145 314; Mul 44 126 170; Add 101 101 44;
  Mul 44 236 108; Add 101 101 44; Mul 330 206 330; Mul 44 207 130; Sub 330 330 44; Add 101 101 330;
  Mul 330 264 87; Mul 44 262 133; Mul 37 185 125; Add 44 44 37; Add 330 330 44; Mul 44 316 94; Mul 37 62 91;
  Mul 1 196 82; Add 37 37 1; Add 44 44 37; Sub 330 330 44; Add 101 101 330; Mul 330 3 101; Mul 44 155 314;
  Mul 37 145 170; Add 44 44 37; Mul 37 229 108; Add 44 44 37; Mul 130 211 130; Mul 328 206 328; Sub 130 130 328;
  Add 44 44 130; Mul 130 261 87; Mul 328 352 133; Mul 37 339 125; Add 328 328 37; Add 130 130 328;
  Mul 328 78 94; Mul 37 157 91; Mul 1 127 82; Add 37 37 1; Add 328 328 37; Sub 130 130 328; Add 44 44 130;
  Mul 130 2 44; Sub 330 330 130; Add 139 139 330; Mul 139 139 132; Add 253 253 139; Mul 179 179 120;
  Mul 159 159 128; Sub 179 179 159; Mul 169 169 167; Mul 129 129 334; Sub 169 169 129; Add 179 179 169;
  Mul 169 171 331; Mul 129 160 329; Sub 169 169 129; Sub 179 179 169; Mul 179 138 179; Mul 169 342 128;
  Mul 129 280 120; Mul 159 273 119; Add 129 129 159; Add 169 169 129; Add 169 179 169; Mul 129 18 169;
  Mul 159 355 128; Mul 139 267 120; Mul 330 304 119; Add 139 139 330; Add 159 159 139; Add 159 333 159;
  Mul 139 8 159; Sub 129 129 139; Mul 139 266 128; Mul 330 358 120].
Definition casadi_f4_21 : list instruction := [
  Mul 130 323 119; Add 330 330 130; Add 139 139 330; Add 139 163 139; Mul 330 248 139; Sub 129 129 330;
  Mul 330 181 329; Mul 130 162 331; Add 330 330 130; Mul 130 192 332; Add 330 330 130; Mul 163 176 163;
  Mul 130 171 179; Sub 163 163 130; Add 330 330 163; Mul 163 269 334; Mul 130 267 167; Mul 328 186 336;
  Add 130 130 328; Add 163 163 130; Mul 130 320 128; Mul 328 99 120; Mul 37 150 119; Add 328 328 37;
  Add 130 130 328; Add 163 163 130; Add 330 330 163; Mul 163 3 330; Mul 329 190 329; Mul 331 181 331;
  Add 329 329 331; Mul 332 184 332; Add 329 329 332; Mul 179 160 179; Mul 333 176 333; Sub 179 179 333;
  Add 329 329 179; Mul 179 266 334; Mul 333 354 167; Mul 332 341 336; Add 333 333 332; Add 179 179 333;
  Mul 333 115 128; Mul 332 193 120; Mul 331 161 119; Add 332 332 331; Add 333 333 332; Add 179 179 333;
  Add 329 329 179; Mul 179 2 329; Sub 163 163 179; Add 129 129 163; Mul 129 129 166; Add 253 253 129;
  Out 0 1 253; Mul 311 71 311; Mul 286 52 286; Mul 258 58 258; Sub 286 286 258; Add 311 311 286; Mul 46 2 46;
  Mul 61 3 61; Sub 46 46 61; Add 311 311 46; Mul 311 311 5; Mul 232 232 2; Mul 238 238 3; Sub 232 232 238;
  Mul 238 222 2; Sub 238 52 238; Mul 238 210 238; Mul 46 223 238; Mul 61 222 3; Sub 61 71 61; Mul 61 210 61;
  Mul 286 227 61; Sub 46 46 286; Add 232 232 46; Mul 232 232 226; Mul 46 223 3; Mul 286 227 2; Add 46 46 286;
  Sub 46 46 58; Mul 210 210 46; Mul 46 210 27; Mul 286 61 242; Mul 258 238 247; Sub 286 286 258; Add 46 46 286;
  Mul 73 73 2; Mul 286 69 3; Sub 73 73 286; Mul 227 227 210; Mul 238 222 238; Sub 227 227 238; Add 73 73 227;
  Mul 73 73 234; Sub 46 46 73; Mul 69 69 2; Mul 51 51 3; Sub 69 69 51; Mul 222 222 61; Mul 223 223 210;
  Sub 222 222 223; Add 69 69 222; Mul 69 69 240; Sub 46 46 69; Add 232 232 46; Mul 347 71 347; Mul 344 52 344;
  Mul 50 58 50; Sub 344 344 50; Add 347 347 344; Mul 74 2 74; Mul 335 3 335; Sub 74 74 335; Add 347 347 74;
  Mul 347 347 3; Mul 123 2 123; Mul 15 3 15; Sub 123 123 15; Mul 123 123 18; Mul 348 2 348; Mul 252 3 252;
  Sub 348 348 252; Mul 348 348 8; Mul 251 2 251; Mul 254 3 254; Sub 251 251 254; Mul 251 251 248;
  Add 348 348 251; Sub 123 123 348; Mul 265 71 265; Mul 349 52 349; Mul 92 58 92; Sub 349 349 92;
  Add 265 265 349; Mul 172 2 172; Mul 308 3 308; Sub 172 172 308; Add 265 265 172; Mul 265 265 2;
  Sub 123 123 265; Add 347 347 123; Add 232 232 347; Mul 232 232 14; Add 311 311 232; Mul 239 71 239;
  Mul 283 52 283].
Definition casadi_f4_22 : list instruction := [
  Mul 45 58 45; Sub 283 283 45; Add 239 239 283; Mul 23 2 23; Mul 233 3 233; Sub 23 23 233; Add 239 239 23;
  Mul 239 239 56; Add 311 311 239; Mul 239 71 32; Mul 23 52 65; Mul 233 58 89; Sub 23 23 233; Add 239 239 23;
  Mul 23 2 310; Mul 233 3 64; Sub 23 23 233; Add 239 239 23; Mul 239 239 95; Add 311 311 239; Mul 239 71 327;
  Mul 23 52 103; Mul 233 58 141; Sub 23 23 233; Add 239 239 23; Mul 23 2 44; Mul 233 3 101; Sub 23 23 233;
  Add 239 239 23; Mul 239 239 132; Add 311 311 239; Mul 239 71 139; Mul 23 52 159; Mul 233 58 169;
  Sub 23 23 233; Add 239 239 23; Mul 23 2 329; Mul 233 3 330; Sub 23 23 233; Add 239 239 23; Mul 239 239 166;
  Add 311 311 239; Out 0 2 311; Mul 315 276 315; Mul 292 90 292; Mul 263 96 263; Sub 292 292 263;
  Add 315 315 292; Mul 86 2 86; Mul 191 3 191; Sub 86 86 191; Add 315 315 86; Mul 315 315 5; Mul 230 230 2;
  Mul 237 237 3; Sub 230 230 237; Mul 237 214 2; Sub 237 90 237; Mul 237 203 237; Mul 86 215 237; Mul 191 214 3;
  Sub 191 276 191; Mul 191 203 191; Mul 292 219 191; Sub 86 86 292; Add 230 230 86; Mul 86 230 226;
  Mul 292 215 3; Mul 263 219 2; Add 292 292 263; Sub 292 292 96; Mul 203 203 292; Mul 292 203 27;
  Mul 263 191 242; Mul 311 237 247; Sub 263 263 311; Add 292 292 263; Mul 110 110 2; Mul 263 106 3;
  Sub 110 110 263; Mul 219 219 203; Mul 263 214 237; Sub 219 219 263; Add 110 110 219; Mul 219 110 234;
  Sub 292 292 219; Mul 106 106 2; Mul 83 83 3; Sub 106 106 83; Mul 214 214 191; Mul 215 215 203;
  Sub 214 214 215; Add 106 106 214; Mul 214 106 240; Sub 292 292 214; Add 86 86 292; Mul 356 276 356;
  Mul 270 90 270; Mul 33 96 33; Sub 270 270 33; Add 356 356 270; Mul 111 2 111; Mul 24 3 24; Sub 111 111 24;
  Add 356 356 111; Mul 111 356 3; Mul 337 2 337; Mul 131 3 131; Sub 337 337 131; Mul 131 337 18; Mul 350 2 350;
  Mul 257 3 257; Sub 350 350 257; Mul 257 350 8; Mul 256 2 256; Mul 259 3 259; Sub 256 256 259; Mul 259 256 248;
  Add 257 257 259; Sub 131 131 257; Mul 303 276 303; Mul 351 90 351; Mul 338 96 338; Sub 351 351 338;
  Add 303 303 351; Mul 41 2 41; Mul 312 3 312; Sub 41 41 312; Add 303 303 41; Mul 41 303 2; Sub 131 131 41;
  Add 111 111 131; Add 86 86 111; Mul 86 86 14; Add 315 315 86; Mul 106 106 26; Mul 110 110 218; Mul 203 203 55;
  Mul 237 237 49; Mul 191 191 53; Add 237 237 191; Add 203 203 237; Add 110 110 203; Add 106 106 110;
  Mul 230 230 183; Sub 106 106 230; Mul 303 303 2; Mul 350 350 52; Mul 256 256 71].
Definition casadi_f4_23 : list instruction := [
  Add 350 350 256; Mul 337 337 58; Sub 350 350 337; Add 303 303 350; Mul 356 356 3; Sub 303 303 356;
  Add 106 106 303; Mul 106 106 56; Add 315 315 106; Mul 32 276 32; Mul 65 90 65; Mul 89 96 89; Sub 65 65 89;
  Add 32 32 65; Mul 310 2 310; Mul 64 3 64; Sub 310 310 64; Add 32 32 310; Mul 32 32 95; Add 315 315 32;
  Mul 32 276 327; Mul 310 90 103; Mul 64 96 141; Sub 310 310 64; Add 32 32 310; Mul 310 2 44; Mul 64 3 101;
  Sub 310 310 64; Add 32 32 310; Mul 32 32 132; Add 315 315 32; Mul 32 276 139; Mul 310 90 159; Mul 64 96 169;
  Sub 310 310 64; Add 32 32 310; Mul 310 2 329; Mul 64 3 330; Sub 310 310 64; Add 32 32 310; Mul 32 32 166;
  Add 315 315 32; Out 0 3 315; Mul 319 87 319; Mul 298 133 298; Mul 268 125 268; Add 298 298 268;
  Add 319 319 298; Mul 127 94 127; Mul 196 91 196; Mul 144 82 144; Add 196 196 144; Add 127 127 196;
  Sub 319 319 127; Mul 319 319 5; Mul 127 207 82; Mul 196 206 94; Sub 127 127 196; Sub 127 133 127;
  Mul 127 295 127; Mul 196 207 127; Mul 144 206 91; Mul 298 211 82; Sub 144 144 298; Sub 144 87 144;
  Mul 144 295 144; Mul 298 211 144; Sub 196 196 298; Mul 298 229 94; Mul 268 236 91; Add 298 298 268;
  Mul 200 200 82; Add 298 298 200; Sub 196 196 298; Mul 298 196 226; Mul 200 211 94; Mul 268 207 91;
  Sub 200 200 268; Sub 200 125 200; Mul 295 295 200; Mul 200 295 27; Mul 268 144 242; Mul 315 127 247;
  Sub 268 268 315; Add 200 200 268; Mul 211 211 295; Mul 268 206 127; Sub 211 211 268; Mul 155 155 94;
  Mul 268 145 91; Add 155 155 268; Mul 229 229 82; Add 155 155 229; Sub 211 211 155; Mul 155 211 234;
  Sub 200 200 155; Mul 206 206 144; Mul 207 207 295; Sub 206 206 207; Mul 145 145 94; Mul 126 126 91;
  Add 145 145 126; Mul 236 236 82; Add 145 145 236; Sub 206 206 145; Mul 145 206 240; Sub 200 200 145;
  Add 298 298 200; Mul 357 87 357; Mul 272 133 272; Mul 164 125 164; Add 272 272 164; Add 357 357 272;
  Mul 157 94 157; Mul 62 91 62; Mul 153 82 153; Add 62 62 153; Add 157 157 62; Sub 357 357 157; Mul 157 357 3;
  Mul 352 94 352; Mul 262 91 262; Mul 301 82 301; Add 262 262 301; Add 352 352 262; Mul 262 352 8;
  Mul 261 94 261; Mul 264 91 264; Mul 322 82 322; Add 264 264 322; Add 261 261 264; Mul 264 261 248;
  Add 262 262 264; Mul 339 94 339; Mul 185 91 185; Mul 274 82 274; Add 185 185 274; Add 339 339 185;
  Mul 185 339 18; Sub 262 262 185; Mul 271 87 271; Mul 353 133 353; Mul 340 125 340; Add 353 353 340;
  Add 271 271 353; Mul 78 94 78; Mul 316 91 316; Mul 122 82 122; Add 316 316 122].
Definition casadi_f4_24 : list instruction := [
  Add 78 78 316; Sub 271 271 78; Mul 78 271 2; Sub 262 262 78; Add 157 157 262; Add 298 298 157; Mul 298 298 14;
  Add 319 319 298; Mul 298 206 26; Mul 157 211 218; Mul 262 295 55; Mul 78 127 49; Mul 316 144 53;
  Add 78 78 316; Add 262 262 78; Add 157 157 262; Add 298 298 157; Mul 157 196 183; Sub 298 298 157;
  Mul 157 271 2; Mul 262 339 58; Mul 78 352 52; Mul 316 261 71; Add 78 78 316; Sub 262 262 78; Add 157 157 262;
  Mul 262 357 3; Sub 157 157 262; Add 298 298 157; Mul 298 298 56; Add 319 319 298; Mul 206 206 165;
  Mul 211 211 277; Mul 295 295 93; Mul 127 127 289; Mul 144 144 11; Add 127 127 144; Add 295 295 127;
  Add 211 211 295; Add 206 206 211; Mul 196 196 48; Sub 206 206 196; Mul 271 271 2; Mul 339 339 96;
  Mul 352 352 90; Mul 261 261 276; Add 352 352 261; Sub 339 339 352; Add 271 271 339; Mul 357 357 3;
  Sub 271 271 357; Add 206 206 271; Mul 206 206 95; Add 319 319 206; Mul 327 87 327; Mul 103 133 103;
  Mul 141 125 141; Add 103 103 141; Add 327 327 103; Mul 44 94 44; Mul 101 91 101; Mul 318 82 318;
  Add 101 101 318; Add 44 44 101; Sub 327 327 44; Mul 327 327 132; Add 319 319 327; Mul 327 87 139;
  Mul 44 133 159; Mul 101 125 169; Add 44 44 101; Add 327 327 44; Mul 44 94 329; Mul 101 91 330; Mul 318 82 6;
  Add 101 101 318; Add 44 44 101; Sub 327 327 44; Mul 327 327 166; Add 319 319 327; Out 0 4 319;
  Mul 323 334 323; Mul 304 167 304; Mul 319 336 273; Add 304 304 319; Add 323 323 304; Mul 161 128 161;
  Mul 150 120 150; Mul 16 119 16; Add 150 150 16; Add 161 161 150; Add 323 323 161; Mul 5 323 5;
  Mul 161 184 128; Mul 150 192 120; Add 161 161 150; Mul 199 199 119; Add 161 161 199; Mul 199 176 128;
  Mul 150 171 119; Sub 199 199 150; Sub 199 167 199; Mul 199 138 199; Mul 150 171 199; Mul 16 160 119;
  Mul 304 176 120; Sub 16 16 304; Sub 16 334 16; Mul 16 138 16; Mul 304 160 16; Sub 150 150 304;
  Add 161 161 150; Mul 226 161 226; Mul 150 171 120; Mul 304 160 128; Sub 150 150 304; Sub 150 336 150;
  Mul 138 138 150; Mul 27 138 27; Mul 242 16 242; Mul 247 199 247; Sub 242 242 247; Add 27 27 242;
  Mul 190 190 128; Mul 242 181 120; Add 190 190 242; Mul 184 184 119; Add 190 190 184; Mul 160 160 138;
  Mul 184 176 199; Sub 160 160 184; Add 190 190 160; Mul 234 190 234; Sub 27 27 234; Mul 181 181 128;
  Mul 162 162 120; Add 181 181 162; Mul 192 192 119; Add 181 181 192; Mul 176 176 16; Mul 171 171 138;
  Sub 176 176 171; Add 181 181 176; Mul 240 181 240; Sub 27 27 240; Add 226 226 27; Mul 358 334 358;
  Mul 27 167 267; Mul 280 336 280].
Definition casadi_f4_25 : list instruction := [
  Add 27 27 280; Add 358 358 27; Mul 193 128 193; Mul 99 120 99; Mul 168 119 168; Add 99 99 168; Add 193 193 99;
  Add 358 358 193; Mul 193 358 3; Mul 341 128 341; Mul 186 120 186; Mul 273 119 273; Add 186 186 273;
  Add 341 341 186; Mul 18 341 18; Mul 354 128 354; Mul 267 120 267; Mul 307 119 307; Add 267 267 307;
  Add 354 354 267; Mul 8 354 8; Mul 267 128 266; Mul 269 120 269; Mul 326 119 326; Add 269 269 326;
  Add 267 267 269; Mul 248 267 248; Add 8 8 248; Sub 18 18 8; Mul 266 334 266; Mul 355 167 355; Mul 342 336 342;
  Add 355 355 342; Add 266 266 355; Mul 115 128 115; Mul 320 120 320; Mul 149 119 149; Add 320 320 149;
  Add 115 115 320; Add 266 266 115; Mul 115 266 2; Sub 18 18 115; Add 193 193 18; Add 226 226 193;
  Mul 226 226 14; Add 5 5 226; Mul 26 181 26; Mul 218 190 218; Mul 55 138 55; Mul 49 199 49; Mul 53 16 53;
  Add 49 49 53; Add 55 55 49; Add 218 218 55; Add 26 26 218; Mul 183 161 183; Sub 26 26 183; Mul 183 266 2;
  Mul 52 354 52; Mul 71 267 71; Add 52 52 71; Mul 58 341 58; Sub 52 52 58; Add 183 183 52; Mul 52 358 3;
  Sub 183 183 52; Add 26 26 183; Mul 26 26 56; Add 5 5 26; Mul 165 181 165; Mul 277 190 277; Mul 93 138 93;
  Mul 289 199 289; Mul 11 16 11; Add 289 289 11; Add 93 93 289; Add 277 277 93; Add 165 165 277; Mul 48 161 48;
  Sub 165 165 48; Mul 2 266 2; Mul 90 354 90; Mul 276 267 276; Add 90 90 276; Mul 96 341 96; Sub 90 90 96;
  Add 2 2 90; Mul 3 358 3; Sub 2 2 3; Add 165 165 2; Mul 165 165 95; Add 5 5 165; Mul 161 161 108;
  Mul 181 181 170; Mul 190 190 314; Mul 138 138 124; Mul 199 199 275; Mul 16 16 147; Add 199 199 16;
  Add 138 138 199; Add 190 190 138; Add 181 181 190; Add 161 161 181; Mul 341 341 125; Mul 354 354 133;
  Mul 267 267 87; Add 354 354 267; Add 341 341 354; Mul 266 266 94; Sub 341 341 266; Mul 358 358 91;
  Sub 341 341 358; Mul 323 323 82; Sub 341 341 323; Add 161 161 341; Mul 161 161 132; Add 5 5 161;
  Mul 334 334 139; Mul 167 167 159; Mul 336 336 169; Add 167 167 336; Add 334 334 167; Mul 128 128 329;
  Mul 120 120 330; Mul 119 119 6; Add 120 120 119; Add 128 128 120; Add 334 334 128; Mul 334 334 166;
  Add 5 5 334; Out 0 5 5].
Definition casadi_f4 : casadi_function := {| f_locals := casadi_f4_locals; f_code := 
  casadi_f4_1 ++ casadi_f4_2 ++ casadi_f4_3 ++ casadi_f4_4 ++ casadi_f4_5 ++ casadi_f4_6 ++ casadi_f4_7 ++
  casadi_f4_8 ++ casadi_f4_9 ++ casadi_f4_10 ++ casadi_f4_11 ++ casadi_f4_12 ++ casadi_f4_13 ++ casadi_f4_14 ++
  casadi_f4_15 ++ casadi_f4_16 ++ casadi_f4_17 ++ casadi_f4_18 ++ casadi_f4_19 ++ casadi_f4_20 ++
  casadi_f4_21 ++ casadi_f4_22 ++ casadi_f4_23 ++ casadi_f4_24 ++ casadi_f4_25 |}.
Definition casadi_coriolis : casadi_function * casadi_interface := (casadi_f4, {|
  f_name_in := ["i0"; "i1"]; f_name_out := ["o0"]; f_sparsity_in := [casadi_s0; casadi_s0]; f_sparsity_out := [casadi_s0];
  f_n_in := 2; f_n_out := 1; f_work := (2, 1, 0, 0)%nat |}).

(** ** [casadi_gravity]: [casadi_f5] *)

Definition casadi_f5_locals : N := 48.
Definition casadi_f5_1 : list instruction := [
  Lit 0 28928521513269701 19; Lit 1 26028713241927298 17; Arg 2 0 0; Sin 3 2; Arg 4 1 0; Mul 5 3 4; Cos 2 2;
  Arg 6 1 1; Mul 7 2 6; Sub 5 5 7; Mul 7 1 5; Mul 0 0 7; Lit 7 (-243378984925675) 17; Mul 2 2 4; Mul 3 3 6;
  Add 2 2 3; Mul 1 1 2; Mul 7 7 1; Add 0 0 7; Arg 7 0 1; Cos 1 7; Lit 3 (-12834931999999999) 17;
  Lit 6 111531753 8; Mul 4 6 5; Mul 8 3 4; Lit 9 (-22248300000000001) 19; Sin 7 7; Arg 10 1 2; Mul 11 7 10;
  Mul 12 1 2; Sub 11 11 12; Mul 12 6 11; Mul 13 9 12; Sub 8 8 13; Arg 13 0 2; Sin 14 13; Arg 15 0 3; Cos 16 15;
  Arg 17 0 4; Sin 18 17; Lit 19 47627499999999996 19; Lit 20 36563424999999999 17; Cos 17 17; Cos 13 13;
  Mul 21 13 11; Mul 2 7 2; Mul 10 1 10; Add 2 2 10; Mul 10 14 2; Sub 21 21 10; Mul 10 16 21; Sin 15 15;
  Mul 11 14 11; Mul 22 13 2; Add 11 11 22; Mul 22 15 11; Sub 10 10 22; Mul 22 17 10; Mul 23 18 5; Sub 22 22 23;
  Mul 23 20 22; Mul 24 19 23; Lit 25 14133800000000001 19; Mul 26 15 21; Mul 27 16 11; Add 26 26 27;
  Mul 27 20 26; Mul 28 25 27; Add 24 24 28; Arg 28 0 5; Cos 29 28; Lit 30 40659999999999987 21;
  Lit 31 40999999999999998 17; Mul 22 31 22; Mul 32 30 22; Lit 33 (-28247999999999992) 18; Sin 28 28;
  Mul 34 18 10; Mul 35 17 5; Add 34 34 35; Mul 35 28 34; Mul 36 29 26; Add 35 35 36; Mul 35 31 35; Mul 36 33 35;
  Add 32 32 36; Mul 36 29 32; Mul 37 29 34; Mul 38 28 26; Sub 37 37 38; Mul 31 31 37; Mul 33 33 31;
  Mul 37 28 33; Sub 36 36 37; Lit 37 15440000000000001 17; Mul 38 28 31; Mul 39 29 35; Sub 38 38 39;
  Mul 39 37 38; Sub 36 36 39; Add 24 24 36; Mul 36 18 24; Lit 39 (-65590000000000001) 21; Mul 40 39 27;
  Mul 20 20 34; Mul 19 19 20; Add 40 40 19; Mul 30 30 31; Add 40 40 30; Mul 19 17 40; Sub 36 36 19;
  Lit 19 (-43609) 7; Mul 31 29 31; Mul 35 28 35; Add 31 31 35; Add 35 20 31; Mul 34 17 35; Add 22 23 22;
  Mul 41 18 22; Sub 34 34 41; Mul 41 19 34; Sub 36 36 41; Lit 41 (-89886999999999996) 20;
  Lit 42 41321743999999999 17; Mul 26 42 26; Mul 43 41 26; Lit 44 53455000000000003 18; Mul 45 42 5;
  Mul 46 44 45; Add 43 43 46; Sub 36 36 43; Mul 43 16 36; Lit 46 57778009999999998 18; Mul 47 46 45;
  Mul 42 42 10; Mul 41 41 42; Sub 47 47 41; Mul 25 25 20; Mul 39 39 23; Sub 25 25 39; Mul 28 28 32;
  Mul 29 29 33; Add 28 28 29; Mul 37 37 31; Add 28 28 37; Add 25 25 28; Lit 28 70000000000000007 18;
  Mul 37 28 34; Add 37 25 37].
Definition casadi_f5_2 : list instruction := [
  Add 47 47 37; Mul 37 15 47; Sub 43 43 37; Lit 37 59999999999999998 18; Add 45 45 34; Mul 34 37 45;
  Sub 43 43 34; Lit 34 (-17087599999999995) 19; Lit 31 63985217999999999 17; Mul 11 31 11; Mul 29 34 11;
  Lit 33 53546429999999985 18; Mul 5 31 5; Mul 32 33 5; Add 29 29 32; Sub 43 43 29; Mul 29 14 43;
  Lit 32 16524528999999993 17; Mul 39 32 5; Mul 31 31 21; Mul 34 34 31; Sub 39 39 34; Mul 36 15 36;
  Mul 47 16 47; Add 36 36 47; Lit 47 23000000000000001 17; Mul 34 47 45; Add 36 36 34; Add 39 39 36;
  Mul 36 13 39; Add 29 29 36; Lit 36 (-26000000000000001) 17; Add 5 5 45; Mul 45 36 5; Add 29 29 45; Add 8 8 29;
  Mul 1 1 8; Mul 43 13 43; Mul 39 14 39; Sub 43 43 39; Mul 6 6 2; Mul 9 9 6; Lit 2 35523999999999999 20;
  Mul 39 2 4; Add 9 9 39; Sub 43 43 9; Mul 7 7 43; Sub 1 1 7; Lit 7 18199 6; Add 4 4 5; Mul 7 7 4; Add 1 1 7;
  Add 0 0 1; Out 0 0 0; Mul 2 2 12; Mul 3 3 6; Add 2 2 3; Mul 33 33 31; Mul 32 32 11; Add 33 33 32;
  Mul 44 44 42; Mul 46 46 26; Add 44 44 46; Mul 40 18 40; Mul 24 17 24; Add 40 40 24; Mul 17 17 22;
  Mul 18 18 35; Add 17 17 18; Mul 19 19 17; Sub 38 38 27; Mul 28 28 38; Sub 19 19 28; Add 40 40 19;
  Add 44 44 40; Add 42 42 17; Mul 17 16 42; Sub 38 38 26; Mul 26 15 38; Sub 17 17 26; Mul 37 37 17;
  Mul 15 15 42; Mul 16 16 38; Add 15 15 16; Mul 47 47 15; Sub 37 37 47; Add 37 44 37; Add 33 33 37;
  Add 31 31 17; Mul 14 14 31; Sub 15 15 11; Mul 13 13 15; Add 14 14 13; Mul 36 36 14; Sub 36 33 36; Add 2 2 36;
  Out 0 1 2; Neg 33 33; Out 0 2 33; Neg 44 44; Out 0 3 44; Neg 25 25; Out 0 4 25; Neg 30 30; Out 0 5 30].
Definition casadi_f5 : casadi_function := {| f_locals := casadi_f5_locals; f_code := 
  casadi_f5_1 ++ casadi_f5_2 |}.
Definition casadi_gravity : casadi_function * casadi_interface := (casadi_f5, {|
  f_name_in := ["i0"; "i1"]; f_name_out := ["o0"]; f_sparsity_in := [casadi_s0; casadi_s3]; f_sparsity_out := [casadi_s0];
  f_n_in := 2; f_n_out := 1; f_work := (2, 1, 0, 0)%nat |}).

(** ** [casadi_pose_1]: [casadi_f6] *)

Definition casadi_f6_locals : N := 3.
Definition casadi_f6_code : list instruction := [
  Arg 0 0 0; Cos 1 0; Out 0 0 1; Sin 0 0; Out 0 1 0; Lit 2 0 0; Out 0 2 2; Out 0 3 2; Neg 0 0; Out 0 4 0;
  Out 0 5 1; Out 0 6 2; Out 0 7 2; Out 0 8 2; Out 0 9 2; Lit 1 1 0; Out 0 10 1; Out 0 11 2; Out 0 12 2;
  Out 0 13 2; Lit 2 51999999999999998 18; Out 0 14 2; Out 0 15 1].
Definition casadi_f6 : casadi_function := {| f_locals := casadi_f6_locals; f_code := casadi_f6_code |}.
Definition casadi_pose_1 : casadi_function * casadi_interface := (casadi_f6, {|
  f_name_in := ["i0"]; f_name_out := ["o0"]; f_sparsity_in := [casadi_s0]; f_sparsity_out := [casadi_s1];
  f_n_in := 1; f_n_out := 1; f_work := (1, 1, 0, 0)%nat |}).

(** ** [casadi_pose_2]: [casadi_f7] *)

Definition casadi_f7_locals : N := 6.
Definition casadi_f7_code : list instruction := [
  Arg 0 0 0; Cos 1 0; Arg 2 0 1; Cos 3 2; Mul 4 1 3; Out 0 0 4; Sin 0 0; Mul 4 0 3; Out 0 1 4; Sin 2 2; Neg 4 2;
  Out 0 2 4; Lit 4 0 0; Out 0 3 4; Neg 5 0; Out 0 4 5; Out 0 5 1; Out 0 6 4; Out 0 7 4; Mul 5 1 2; Out 0 8 5;
  Mul 2 0 2; Out 0 9 2; Out 0 10 3; Out 0 11 4; Lit 4 18199 6; Mul 1 4 1; Out 0 12 1; Mul 4 4 0; Out 0 13 4;
  Lit 4 10200000000000001 17; Out 0 14 4; Lit 4 1 0; Out 0 15 4].
Definition casadi_f7 : casadi_function := {| f_locals := casadi_f7_locals; f_code := casadi_f7_code |}.
Definition casadi_pose_2 : casadi_function * casadi_interface := (casadi_f7, {|
  f_name_in := ["i0"]; f_name_out := ["o0"]; f_sparsity_in := [casadi_s0]; f_sparsity_out := [casadi_s1];
  f_n_in := 1; f_n_out := 1; f_work := (1, 1, 0, 0)%nat |}).

(** ** [casadi_pose_3]: [casadi_f8] *)

Definition casadi_f8_locals : N := 12.
Definition casadi_f8_code : list instruction := [
  Arg 0 0 0; Cos 1 0; Arg 2 0 1; Cos 3 2; Mul 4 1 3; Arg 5 0 2; Cos 6 5; Mul 7 4 6; Sin 2 2; Mul 8 1 2; Sin 5 5;
  Mul 9 8 5; Add 7 7 9; Out 0 0 7; Sin 0 0; Mul 7 0 3; Mul 9 7 6; Mul 10 0 2; Mul 11 10 5; Add 9 9 11;
  Out 0 1 9; Mul 9 3 5; Mul 11 2 6; Sub 9 9 11; Out 0 2 9; Lit 9 0 0; Out 0 3 9; Neg 11 0; Out 0 4 11;
  Out 0 5 1; Out 0 6 9; Out 0 7 9; Mul 8 8 6; Mul 11 4 5; Sub 8 8 11; Out 0 8 8; Mul 10 10 6; Mul 8 7 5;
  Sub 10 10 8; Out 0 9 10; Mul 5 2 5; Mul 3 3 6; Add 5 5 3; Out 0 10 5; Out 0 11 9; Lit 9 18199 6; Mul 1 9 1;
  Lit 5 (-26000000000000001) 17; Mul 4 5 4; Add 1 1 4; Out 0 12 1; Mul 9 9 0; Mul 7 5 7; Add 9 9 7; Out 0 13 9;
  Lit 9 10200000000000001 17; Mul 5 5 2; Sub 9 9 5; Out 0 14 9; Lit 9 1 0; Out 0 15 9].
Definition casadi_f8 : casadi_function := {| f_locals := casadi_f8_locals; f_code := casadi_f8_code |}.
Definition casadi_pose_3 : casadi_function * casadi_interface := (casadi_f8, {|
  f_name_in := ["i0"]; f_name_out := ["o0"]; f_sparsity_in := [casadi_s0]; f_sparsity_out := [casadi_s1];
  f_n_in := 1; f_n_out := 1; f_work := (1, 1, 0, 0)%nat |}).

(** ** [casadi_pose_4]: [casadi_f9] *)

Definition casadi_f9_locals : N := 16.
Definition casadi_f9_code : list instruction := [
  Arg 0 0 0; Cos 1 0; Arg 2 0 1; Cos 3 2; Mul 4 1 3; Arg 5 0 2; Cos 6 5; Mul 7 4 6; Sin 2 2; Mul 8 1 2; Sin 5 5;
  Mul 9 8 5; Add 7 7 9; Arg 9 0 3; Cos 10 9; Mul 11 7 10; Mul 8 8 6; Mul 12 4 5; Sub 8 8 12; Sin 9 9;
  Mul 12 8 9; Add 11 11 12; Out 0 0 11; Sin 0 0; Mul 11 0 3; Mul 12 11 6; Mul 13 0 2; Mul 14 13 5; Add 12 12 14;
  Mul 14 12 10; Mul 13 13 6; Mul 15 11 5; Sub 13 13 15; Mul 15 13 9; Add 14 14 15; Out 0 1 14; Mul 14 3 5;
  Mul 15 2 6; Sub 14 14 15; Mul 15 14 10; Mul 5 2 5; Mul 3 3 6; Add 5 5 3; Mul 3 5 9; Add 15 15 3; Out 0 2 15;
  Lit 15 0 0; Out 0 3 15; Neg 3 0; Out 0 4 3; Out 0 5 1; Out 0 6 15; Out 0 7 15; Mul 3 8 10; Mul 6 7 9;
  Sub 3 3 6; Out 0 8 3; Mul 3 13 10; Mul 6 12 9; Sub 3 3 6; Out 0 9 3; Mul 10 5 10; Mul 9 14 9; Sub 10 10 9;
  Out 0 10 10; Out 0 11 15; Lit 15 18199 6; Mul 1 15 1; Lit 10 (-26000000000000001) 17; Mul 4 10 4; Add 1 1 4;
  Lit 4 23000000000000001 17; Mul 7 4 7; Lit 9 59999999999999998 18; Mul 8 9 8; Add 7 7 8; Add 1 1 7;
  Out 0 12 1; Mul 15 15 0; Mul 11 10 11; Add 15 15 11; Mul 12 4 12; Mul 13 9 13; Add 12 12 13; Add 15 15 12;
  Out 0 13 15; Lit 15 10200000000000001 17; Mul 10 10 2; Sub 15 15 10; Mul 4 4 14; Mul 9 9 5; Add 4 4 9;
  Add 15 15 4; Out 0 14 15; Lit 15 1 0; Out 0 15 15].
Definition casadi_f9 : casadi_function := {| f_locals := casadi_f9_locals; f_code := casadi_f9_code |}.
Definition casadi_pose_4 : casadi_function * casadi_interface := (casadi_f9, {|
  f_name_in := ["i0"]; f_name_out := ["o0"]; f_sparsity_in := [casadi_s0]; f_sparsity_out := [casadi_s1];
  f_n_in := 1; f_n_out := 1; f_work := (1, 1, 0, 0)%nat |}).

(** ** [casadi_pose_5]: [casadi_f10] *)

Definition casadi_f10_locals : N := 21.
Definition casadi_f10_code : list instruction := [
  Arg 0 0 0; Cos 1 0; Arg 2 0 1; Cos 3 2; Mul 4 1 3; Arg 5 0 2; Cos 6 5; Mul 7 4 6; Sin 2 2; Mul 8 1 2; Sin 5 5;
  Mul 9 8 5; Add 7 7 9; Arg 9 0 3; Cos 10 9; Mul 11 7 10; Mul 8 8 6; Mul 12 4 5; Sub 8 8 12; Sin 9 9;
  Mul 12 8 9; Add 11 11 12; Arg 12 0 4; Cos 13 12; Mul 14 11 13; Sin 0 0; Sin 12 12; Mul 15 0 12; Add 14 14 15;
  Out 0 0 14; Mul 14 0 3; Mul 15 14 6; Mul 16 0 2; Mul 17 16 5; Add 15 15 17; Mul 17 15 10; Mul 16 16 6;
  Mul 18 14 5; Sub 16 16 18; Mul 18 16 9; Add 17 17 18; Mul 18 17 13; Mul 19 1 12; Sub 18 18 19; Out 0 1 18;
  Mul 18 3 5; Mul 19 2 6; Sub 18 18 19; Mul 19 18 10; Mul 5 2 5; Mul 3 3 6; Add 5 5 3; Mul 3 5 9; Add 19 19 3;
  Mul 3 19 13; Out 0 2 3; Lit 3 0 0; Out 0 3 3; Mul 6 11 12; Mul 20 0 13; Sub 6 6 20; Out 0 4 6; Mul 6 17 12;
  Mul 13 1 13; Add 6 6 13; Out 0 5 6; Mul 12 19 12; Out 0 6 12; Out 0 7 3; Mul 12 8 10; Mul 6 7 9; Sub 12 12 6;
  Out 0 8 12; Mul 6 16 10; Mul 13 15 9; Sub 6 6 13; Out 0 9 6; Mul 10 5 10; Mul 9 18 9; Sub 10 10 9;
  Out 0 10 10; Out 0 11 3; Lit 3 18199 6; Mul 1 3 1; Lit 9 (-26000000000000001) 17; Mul 4 9 4; Add 1 1 4;
  Lit 4 23000000000000001 17; Mul 7 4 7; Lit 13 59999999999999998 18; Mul 8 13 8; Add 7 7 8; Add 1 1 7;
  Lit 7 70000000000000007 18; Mul 11 7 11; Lit 8 (-43609) 7; Mul 12 8 12; Add 11 11 12; Add 1 1 11; Out 0 12 1;
  Mul 3 3 0; Mul 14 9 14; Add 3 3 14; Mul 15 4 15; Mul 16 13 16; Add 15 15 16; Add 3 3 15; Mul 17 7 17;
  Mul 6 8 6; Add 17 17 6; Add 3 3 17; Out 0 13 3; Lit 3 10200000000000001 17; Mul 9 9 2; Sub 3 3 9; Mul 4 4 18;
  Mul 13 13 5; Add 4 4 13; Add 3 3 4; Mul 7 7 19; Mul 8 8 10; Add 7 7 8; Add 3 3 7; Out 0 14 3; Lit 3 1 0;
  Out 0 15 3].
Definition casadi_f10 : casadi_function := {| f_locals := casadi_f10_locals; f_code := casadi_f10_code |}.
Definition casadi_pose_5 : casadi_function * casadi_interface := (casadi_f10, {|
  f_name_in := ["i0"]; f_name_out := ["o0"]; f_sparsity_in := [casadi_s0]; f_sparsity_out := [casadi_s1];
  f_n_in := 1; f_n_out := 1; f_work := (1, 1, 0, 0)%nat |}).

(** ** [casadi_pose_6]: [casadi_f11] *)

Definition casadi_f11_locals : N := 29.
Definition casadi_f11_1 : list instruction := [
  Arg 0 0 0; Cos 1 0; Arg 2 0 1; Cos 3 2; Mul 4 1 3; Arg 5 0 2; Cos 6 5; Mul 7 4 6; Sin 2 2; Mul 8 1 2; Sin 5 5;
  Mul 9 8 5; Add 7 7 9; Arg 9 0 3; Cos 10 9; Mul 11 7 10; Mul 8 8 6; Mul 12 4 5; Sub 8 8 12; Sin 9 9;
  Mul 12 8 9; Add 11 11 12; Arg 12 0 4; Cos 13 12; Mul 14 11 13; Sin 0 0; Sin 12 12; Mul 15 0 12; Add 14 14 15;
  Out 0 0 14; Mul 15 0 3; Mul 16 15 6; Mul 17 0 2; Mul 18 17 5; Add 16 16 18; Mul 18 16 10; Mul 17 17 6;
  Mul 19 15 5; Sub 17 17 19; Mul 19 17 9; Add 18 18 19; Mul 19 18 13; Mul 20 1 12; Sub 19 19 20; Out 0 1 19;
  Mul 20 3 5; Mul 21 2 6; Sub 20 20 21; Mul 21 20 10; Mul 5 2 5; Mul 3 3 6; Add 5 5 3; Mul 3 5 9; Add 21 21 3;
  Mul 3 21 13; Out 0 2 3; Lit 6 0 0; Out 0 3 6; Mul 22 11 12; Mul 23 0 13; Sub 22 22 23; Arg 23 0 5; Cos 24 23;
  Mul 25 22 24; Mul 26 8 10; Mul 27 7 9; Sub 26 26 27; Sin 23 23; Mul 27 26 23; Add 25 25 27; Out 0 4 25;
  Mul 25 18 12; Mul 13 1 13; Add 25 25 13; Mul 13 25 24; Mul 27 17 10; Mul 28 16 9; Sub 27 27 28; Mul 28 27 23;
  Add 13 13 28; Out 0 5 13; Mul 12 21 12; Mul 13 12 24; Mul 10 5 10; Mul 9 20 9; Sub 10 10 9; Mul 9 10 23;
  Add 13 13 9; Out 0 6 13; Out 0 7 6; Mul 13 26 24; Mul 22 22 23; Sub 13 13 22; Out 0 8 13; Mul 13 27 24;
  Mul 25 25 23; Sub 13 13 25; Out 0 9 13; Mul 24 10 24; Mul 12 12 23; Sub 24 24 12; Out 0 10 24; Out 0 11 6;
  Lit 6 18199 6; Mul 1 6 1; Lit 24 (-26000000000000001) 17; Mul 4 24 4; Add 1 1 4; Lit 4 23000000000000001 17;
  Mul 7 4 7; Lit 12 59999999999999998 18; Mul 8 12 8; Add 7 7 8; Add 1 1 7; Lit 7 70000000000000007 18;
  Mul 11 7 11; Lit 8 (-43609) 7; Mul 26 8 26; Add 11 11 26; Add 1 1 11; Lit 11 15440000000000001 17;
  Mul 14 11 14; Add 1 1 14; Out 0 12 1; Mul 6 6 0; Mul 15 24 15; Add 6 6 15; Mul 16 4 16; Mul 17 12 17;
  Add 16 16 17; Add 6 6 16; Mul 18 7 18; Mul 27 8 27; Add 18 18 27; Add 6 6 18; Mul 19 11 19; Add 6 6 19;
  Out 0 13 6; Lit 6 10200000000000001 17; Mul 24 24 2; Sub 6 6 24; Mul 4 4 20; Mul 12 12 5; Add 4 4 12;
  Add 6 6 4; Mul 7 7 21; Mul 8 8 10; Add 7 7 8; Add 6 6 7].
Definition casadi_f11_2 : list instruction := [
  Mul 11 11 3; Add 6 6 11; Out 0 14 6; Lit 6 1 0; Out 0 15 6].
Definition casadi_f11 : casadi_function := {| f_locals := casadi_f11_locals; f_code := 
  casadi_f11_1 ++ casadi_f11_2 |}.
Definition casadi_pose_6 : casadi_function * casadi_interface := (casadi_f11, {|
  f_name_in := ["i0"]; f_name_out := ["o0"]; f_sparsity_in := [casadi_s0]; f_sparsity_out := [casadi_s1];
  f_n_in := 1; f_n_out := 1; f_work := (1, 1, 0, 0)%nat |}).

Definition panthera : generated := {|
  g_fk := casadi_fk; g_zero_jacobian := casadi_zero_jacobian; g_body_jacobian := casadi_body_jacobian;
  g_mass := casadi_mass; g_coriolis := casadi_coriolis; g_gravity := casadi_gravity;
  g_pose := [casadi_pose_1; casadi_pose_2; casadi_pose_3; casadi_pose_4; casadi_pose_5; casadi_pose_6] |}.
