(* ===== verification/MpcModel.v ===== *)
(** * The model of the MPC

    What CasADi generated of the arm for the solver (src/generated/
    c_generated_code/willow_mpc_model/), a module per file; the equations of motion
    with their sensitivities are in MpcForward.v. *)

From stdpp Require Import strings.
From S2P Require Import Prelude Casadi.

(** ** The gravity of the MPC model

    willow_mpc_gravity.c, generated by CasADi: the torques that hold the arm
    still at the joint state that it is given. *)

Module MpcGravity.
#[local] Open Scope string_scope.
#[local] Open Scope list_scope.

Definition casadi_s0 : list Z := [12; 1; 1].
Definition casadi_s1 : list Z := [6; 1; 1].

Definition casadi_f0_locals : N := 46.
Definition casadi_f0_1 : list instruction := [
  Arg 0 0 1; Cos 1 0; Lit 2 (-48229800000000001) 19; Lit 3 77619844000000005 17; Lit 4 98100000000000005 16;
  Sin 0 0; Mul 5 4 0; Mul 6 3 5; Mul 6 2 6; Arg 7 0 2; Sin 8 7; Lit 9 40138699999999984 19; Lit 10 118070539 8;
  Mul 11 8 5; Cos 7 7; Mul 4 4 1; Mul 12 7 4; Add 11 11 12; Mul 12 10 11; Mul 13 9 12; Arg 14 0 3; Cos 15 14;
  Lit 16 104537160417653 17; Lit 17 47384665999999998 17; Sin 14 14; Mul 18 8 4; Mul 5 7 5; Sub 18 18 5;
  Mul 5 14 18; Mul 19 15 11; Add 5 5 19; Mul 19 17 5; Mul 20 16 19; Arg 21 0 4; Cos 22 21;
  Lit 23 (-49119999999999984) 21; Lit 24 37429752999999999 17; Mul 25 24 5; Mul 26 23 25;
  Lit 27 (-31543689999999985) 18; Sin 21 21; Mul 28 15 18; Mul 11 14 11; Sub 28 28 11; Mul 11 21 28;
  Mul 29 24 11; Mul 30 27 29; Sub 26 26 30; Lit 30 96069999999999993 21; Lit 31 80521113 8; Arg 32 0 5;
  Sin 33 32; Mul 34 33 11; Cos 32 32; Mul 35 32 5; Add 34 34 35; Mul 34 31 34; Mul 35 30 34;
  Lit 36 (-19297299999999999) 19; Mul 11 32 11; Mul 5 33 5; Sub 11 11 5; Mul 11 31 11; Mul 5 36 11; Sub 35 35 5;
  Lit 5 (-78693) 9; Mul 37 32 34; Mul 38 33 11; Sub 37 37 38; Mul 38 5 37; Lit 39 (-34077999999999997) 18;
  Mul 40 32 11; Mul 41 33 34; Add 40 40 41; Mul 41 39 40; Sub 38 38 41; Add 38 35 38; Add 26 26 38;
  Mul 38 22 26; Mul 41 22 28; Mul 24 24 41; Mul 27 27 24; Lit 42 35419999999999991 19; Mul 43 42 25;
  Sub 27 27 43; Mul 31 31 41; Mul 36 36 31; Lit 41 (-94756709999999994) 18; Mul 34 41 34; Sub 36 36 34;
  Mul 34 32 36; Mul 41 41 11; Mul 30 30 31; Sub 41 41 30; Mul 30 33 41; Add 34 34 30; Mul 39 39 31;
  Lit 30 18848000000000001 17; Mul 11 30 37; Sub 39 39 11; Add 34 34 39; Add 27 27 34; Mul 34 21 27;
  Add 38 38 34; Lit 34 26250000000000002 19; Add 25 25 37; Mul 37 34 25; Lit 39 41000000000000002 18;
  Add 11 29 40; Mul 43 22 11; Add 44 24 31; Mul 45 21 44; Sub 43 43 45; Mul 45 39 43; Sub 37 37 45;
  Add 38 38 37; Add 20 20 38; Mul 38 15 20; Mul 42 42 29; Mul 23 23 24; Sub 42 42 23; Mul 32 32 41;
  Mul 33 33 36; Sub 32 32 33; Mul 30 30 40; Mul 5 5 31; Sub 30 30 5; Add 32 32 30; Add 42 42 32;
  Lit 32 62758999999999995 18; Mul 30 32 43; Mul 44 22 44; Mul 11 21 11; Add 44 44 11; Mul 34 34 44;
  Sub 30 30 34; Add 30 42 30; Mul 17 17 28; Mul 16 16 17; Sub 30 30 16; Mul 16 14 30; Add 38 38 16;
  Lit 16 528 4; Mul 28 16 43; Sub 38 38 28; Add 13 13 38; Mul 38 8 13; Mul 30 15 30; Mul 20 14 20].
Definition casadi_f0_2 : list instruction := [
  Sub 30 30 20; Lit 20 24818000000000001 17; Mul 28 20 43; Add 30 30 28; Mul 10 10 18; Mul 9 9 10; Sub 30 30 9;
  Mul 9 7 30; Add 38 38 9; Lit 9 (-28499999999999998) 17; Mul 43 9 43; Lit 18 (-26250000000000002) 19;
  Add 28 17 44; Mul 34 15 28; Add 11 19 25; Mul 5 14 11; Add 34 34 5; Add 5 10 34; Mul 31 7 5; Mul 15 15 11;
  Mul 14 14 28; Sub 15 15 14; Add 14 12 15; Mul 28 8 14; Sub 31 31 28; Mul 31 18 31; Sub 43 43 31; Add 38 38 43;
  Add 6 6 38; Mul 1 1 6; Mul 3 3 4; Mul 2 2 3; Mul 13 7 13; Mul 30 8 30; Sub 13 13 30; Mul 8 8 5; Mul 7 7 14;
  Add 8 8 7; Mul 18 18 8; Add 13 13 18; Add 2 2 13; Mul 0 0 2; Sub 1 1 0; Out 0 0 1; Lit 1 32500479999999984 18;
  Mul 1 1 10; Lit 10 11056122999999997 17; Mul 10 10 12; Sub 1 1 10; Lit 10 37000000394383802 18; Mul 10 10 17;
  Lit 17 35766769331050302 18; Mul 17 17 19; Sub 10 10 17; Mul 22 22 27; Mul 21 21 26; Sub 22 22 21;
  Mul 39 39 44; Mul 32 32 25; Sub 39 39 32; Add 22 22 39; Add 10 10 22; Mul 16 16 34; Mul 20 20 15;
  Sub 16 16 20; Add 16 10 16; Add 1 1 16; Mul 9 9 8; Sub 9 1 9; Lit 8 (-14104253) 8; Mul 8 8 3; Sub 9 9 8;
  Out 0 1 9; Neg 1 1; Out 0 2 1; Out 0 3 10; Neg 42 42; Out 0 4 42; Neg 35 35; Out 0 5 35].
Definition casadi_f0 : casadi_function := {| f_locals := casadi_f0_locals; f_code :=
  casadi_f0_1 ++ casadi_f0_2 |}.
Definition willow_mpc_gravity : casadi_function * casadi_interface := (casadi_f0, {|
  f_name_in := ["i0"]; f_name_out := ["o0"]; f_sparsity_in := [casadi_s0]; f_sparsity_out := [casadi_s1];
  f_n_in := 1; f_n_out := 1; f_work := (1, 1, 0, 0)%nat |}).
End MpcGravity.
Export MpcGravity.

(** ** The equations of motion of the MPC model

    willow_mpc_expl_ode_fun.c, generated by CasADi: the derivative of the state
    (six angles and six velocities) under six torques. *)

Module MpcOde.
#[local] Open Scope string_scope.
#[local] Open Scope list_scope.

Definition casadi_s0 : list Z := [12; 1; 0; 12; 0; 1; 2; 3; 4; 5; 6; 7; 8; 9; 10; 11].
Definition casadi_s1 : list Z := [6; 1; 0; 6; 0; 1; 2; 3; 4; 5].
Definition casadi_s2 : list Z := [0; 0; 0].

Definition casadi_f0_locals : N := 489.
Definition casadi_f0_1 : list instruction := [
  Arg 0 0 6; Out 0 0 0; Arg 1 0 7; Out 0 1 1; Arg 2 0 8; Out 0 2 2; Arg 3 0 9; Out 0 3 3; Arg 4 0 10; Out 0 4 4;
  Arg 5 0 11; Out 0 5 5; Lit 6 3009 7; Lit 7 81022799999999999 19; Arg 8 0 2; Sin 9 8;
  Lit 10 14680600000000002 19; Lit 11 57735000000000002 20; Lit 12 17809999999999999 20;
  Lit 13 (-80407999999999999) 20; Lit 14 (-63539999999999951) 21; Arg 15 0 5; Cos 16 15; Mul 17 14 16;
  Lit 18 82379999999999994 21; Sin 15 15; Mul 19 18 15; Add 17 17 19; Mul 17 17 16; Sub 19 13 17; Mul 20 18 16;
  Mul 21 14 15; Sub 20 20 21; Mul 21 20 15; Add 19 19 21; Lit 22 130247 8; Add 19 19 22; Add 12 12 19;
  Lit 19 25552041058139319 17; Lit 23 (-49119999999999984) 21; Lit 24 (-78693) 9; Lit 25 96069999999999993 21;
  Mul 26 25 16; Lit 27 (-19297299999999999) 19; Mul 28 27 15; Add 26 26 28; Add 26 24 26; Sub 28 23 26;
  Sq 29 28; Lit 30 (-31543689999999985) 18; Lit 31 (-34077999999999997) 18; Mul 32 27 16; Mul 33 25 15;
  Sub 32 32 33; Add 32 31 32; Sub 33 30 32; Sq 34 33; Add 35 29 34; Mul 35 19 35; Add 12 12 35; Lit 35 15129 8;
  Sub 21 22 21; Add 21 35 21; Lit 36 81326650660641028 19; Add 29 36 29; Mul 29 19 29; Add 21 21 29;
  Sub 12 12 21; Lit 29 17626 8; Add 17 17 22; Add 29 29 17; Add 36 36 34; Mul 36 19 36; Add 29 29 36;
  Sub 29 29 21; Add 36 12 29; Arg 34 0 4; Cos 17 34; Mul 29 17 29; Sin 34 34; Lit 37 19000000000000001 23;
  Lit 38 61999999999999999 23; Mul 39 38 16; Lit 40 (-69999999999999997) 23; Mul 41 40 15; Add 39 39 41;
  Lit 41 (-34999999999999998) 23; Mul 42 41 15; Sub 39 39 42; Add 39 37 39; Lit 42 (-23043160247559692) 18;
  Mul 43 42 28; Sub 39 39 43; Mul 43 34 39; Sub 29 29 43; Mul 43 29 17; Mul 39 17 39; Mul 12 34 12;
  Sub 39 39 12; Mul 12 39 34; Sub 43 43 12; Sub 36 36 43; Add 36 36 21; Add 11 11 36;
  Lit 36 33804363298149098 17; Lit 12 104537160417653 17; Lit 44 26250000000000002 19;
  Lit 45 (-15587418131885522) 21; Lit 46 68266656897627187 17; Mul 26 46 26; Add 45 45 26; Mul 26 17 45;
  Lit 47 65105751830154185 18; Mul 48 47 34; Sub 26 26 48; Add 26 44 26; Sub 48 12 26; Sq 49 48;
  Lit 50 37000000394383802 18; Lit 51 41000000000000002 18; Lit 52 (-10009867374848859) 18; Mul 32 46 32;
  Add 52 52 32; Add 32 51 52; Sub 53 50 32; Sq 54 53; Add 55 49 54; Mul 55 36 55; Add 11 11 55;
  Lit 55 61516000000000001 20; Add 56 55 21; Lit 57 35766769331050302 18; Lit 58 62758999999999995 18;
  Mul 47 47 17; Mul 59 34 45; Add 47 47 59; Add 47 58 47; Sub 59 57 47; Sq 60 59; Add 49 60 49; Mul 49 36 49;
  Add 56 56 49; Sub 11 11 56; Arg 49 0 3; Cos 61 49; Lit 62 2 0; Lit 63 (-27386000000000001) 20;
  Lit 64 35999999999999998 22; Mul 65 40 16].
Definition casadi_f0_2 : list instruction := [
  Mul 66 38 15; Sub 65 65 66; Mul 66 41 16; Sub 65 65 66; Add 65 64 65; Mul 42 42 33; Sub 65 65 42;
  Mul 42 62 65; Mul 66 42 17; Mul 20 20 16; Lit 67 (-41189999999999997) 21; Add 20 20 67; Mul 28 19 28;
  Mul 28 28 33; Sub 20 20 28; Add 28 20 20; Mul 33 28 34; Add 66 66 33; Mul 33 34 20; Mul 67 17 65;
  Add 33 33 67; Sub 66 66 33; Add 66 63 66; Mul 59 36 59; Mul 33 59 53; Sub 66 66 33; Mul 33 62 66;
  Mul 33 61 33; Sin 49 49; Mul 67 49 11; Sub 33 33 67; Mul 67 33 49; Add 11 11 67; Add 11 11 56; Add 10 10 11;
  Lit 11 68880865220038789 17; Lit 68 40138699999999984 19; Lit 69 29960035638188816 20;
  Lit 70 71340300885837415 17; Mul 26 70 26; Add 69 69 26; Sub 26 68 69; Sq 71 26; Lit 72 32500479999999984 18;
  Lit 73 528 4; Lit 74 10604088785269368 18; Mul 32 70 32; Add 74 74 32; Mul 32 61 74;
  Lit 75 10250648473135598 18; Mul 47 70 47; Add 75 75 47; Mul 47 49 75; Sub 32 32 47; Add 32 73 32;
  Sub 47 72 32; Sq 76 47; Add 77 71 76; Mul 77 11 77; Add 10 10 77; Lit 77 1444279 8; Sub 56 56 67;
  Add 56 77 56; Lit 67 11056122999999997 17; Lit 78 24818000000000001 17; Mul 79 61 75; Mul 80 49 74;
  Add 79 79 80; Add 79 78 79; Sub 80 67 79; Sq 81 80; Add 71 81 71; Mul 71 11 71; Add 56 56 71; Sub 10 10 56;
  Mul 71 9 10; Cos 8 8; Lit 82 (-26343899999999999) 19; Mul 33 33 61; Sub 33 33 66; Add 33 82 33; Mul 80 11 80;
  Mul 66 80 47; Sub 33 33 66; Mul 66 62 33; Mul 66 8 66; Add 71 71 66; Mul 66 71 9; Add 83 66 56; Add 83 7 83;
  Lit 84 60931733999408122 17; Lit 85 (-14104253) 8; Lit 86 (-28499999999999998) 17;
  Lit 87 46061201062284104 18; Lit 88 58338740386404775 17; Mul 79 88 79; Add 87 87 79; Mul 79 8 87;
  Lit 89 13540109348464583 18; Mul 32 88 32; Add 89 89 32; Mul 32 9 89; Sub 79 79 32; Add 79 86 79;
  Sub 32 85 79; Sq 90 32; Lit 91 (-48229800000000001) 19; Lit 92 (-26250000000000002) 19;
  Lit 93 16722288012522134 19; Mul 94 88 69; Add 93 93 94; Add 94 92 93; Sub 95 91 94; Sq 96 95; Add 97 90 96;
  Mul 97 84 97; Add 83 83 97; Arg 97 0 1; Cos 98 97; Lit 99 (-79999999999999996) 23; Mul 71 71 8; Sub 71 71 33;
  Add 71 99 71; Mul 32 84 32; Mul 33 9 87; Mul 100 8 89; Add 33 33 100; Mul 100 32 33; Add 71 71 100;
  Mul 62 62 71; Mul 62 98 62; Sin 97 97; Lit 71 10185399999999992 19; Sub 10 10 66; Add 10 10 56; Add 71 71 10;
  Sq 10 33; Add 96 96 10; Mul 96 84 96; Add 71 71 96; Sub 71 71 83; Mul 71 97 71; Sub 62 62 71; Mul 62 62 97;
  Sub 83 83 62; Add 6 6 83; Lit 83 46553910740168264 17; Lit 62 (-56369999999999997) 21;
  Lit 71 (-30323859648594256) 18].
Definition casadi_f0_3 : list instruction := [
  Lit 96 78500201571402428 17; Mul 79 96 79; Add 71 71 79; Mul 79 98 71; Mul 56 96 33; Mul 66 97 56;
  Add 79 79 66; Sub 62 62 79; Sq 62 62; Lit 66 14535500000000001 19; Lit 100 (-10369309782515752) 19;
  Mul 94 96 94; Add 100 100 94; Sub 66 66 100; Sq 66 66; Add 62 62 66; Mul 83 83 62; Add 6 6 83;
  Lit 83 41447158900000005 16; Lit 62 (-72688520114221854) 22; Lit 66 87105105532336013 17; Mul 79 66 79;
  Add 62 62 79; Sq 62 62; Lit 79 1874337385347298 19; Mul 66 66 100; Add 79 79 66; Sq 79 79; Add 62 62 79;
  Mul 83 83 62; Add 6 6 83; Sq 83 6; Lit 62 (-38199999999999998) 22; Lit 79 (-23999999999999999) 22;
  Mul 39 39 17; Mul 29 29 34; Add 39 39 29; Add 39 79 39; Mul 59 59 48; Sub 39 39 59; Mul 59 39 61;
  Lit 29 (-34199999999999999) 22; Mul 28 28 17; Mul 42 42 34; Sub 28 28 42; Mul 42 34 65; Mul 66 17 20;
  Sub 42 42 66; Add 28 28 42; Add 28 29 28; Mul 48 36 48; Mul 48 48 53; Sub 28 28 48; Mul 48 49 28;
  Add 59 59 48; Add 59 62 59; Mul 80 80 26; Sub 59 59 80; Mul 80 9 59; Lit 48 14589999999999999 21;
  Add 53 28 28; Mul 53 61 53; Mul 42 49 39; Sub 53 53 42; Mul 42 61 28; Sub 53 53 42; Add 53 48 53;
  Mul 26 11 26; Mul 26 26 47; Sub 53 53 26; Add 26 53 53; Mul 26 8 26; Add 80 80 26; Mul 26 8 53; Sub 80 80 26;
  Mul 26 84 95; Mul 26 26 33; Add 80 80 26; Lit 26 36102591500000001 16; Mul 33 26 100; Mul 33 33 56;
  Sub 80 80 33; Mul 80 98 80; Lit 33 (-16860000000000001) 21; Mul 47 59 8; Mul 42 9 53; Sub 47 47 42;
  Add 47 33 47; Mul 32 32 95; Sub 47 47 32; Mul 32 26 71; Mul 32 32 100; Sub 47 47 32; Mul 47 97 47;
  Sub 80 80 47; Sq 47 80; Add 83 83 47; Lit 47 (-28340607100000001) 16; Mul 32 47 89; Mul 100 93 32;
  Add 53 53 100; Mul 100 9 53; Mul 47 47 87; Mul 93 93 47; Add 59 59 93; Mul 93 8 59; Sub 100 100 93;
  Mul 93 9 32; Mul 95 8 47; Sub 93 93 95; Mul 95 92 93; Add 100 100 95; Mul 100 97 100; Mul 59 9 59;
  Mul 53 8 53; Add 59 59 53; Mul 53 8 32; Mul 95 9 47; Add 53 53 95; Mul 53 92 53; Add 59 59 53; Mul 59 98 59;
  Add 100 100 59; Sq 59 100; Add 83 83 59; Lit 59 165335532 8; Mul 53 59 75; Mul 53 53 69; Sub 39 39 53;
  Mul 53 61 39; Mul 69 59 69; Mul 69 69 74; Sub 28 28 69; Mul 69 49 28; Add 53 53 69; Mul 69 9 53; Mul 28 61 28;
  Mul 39 49 39; Sub 28 28 39; Mul 39 8 28; Add 69 69 39; Mul 39 59 74; Mul 95 61 39; Lit 42 (-165335532) 8;
  Mul 42 42 75; Mul 66 49 42; Add 95 95 66; Mul 66 8 95; Mul 42 61 42].
Definition casadi_f0_4 : list instruction := [
  Mul 39 49 39; Sub 42 42 39; Mul 39 9 42; Sub 66 66 39; Mul 66 92 66; Sub 69 69 66; Mul 69 98 69; Mul 53 8 53;
  Mul 28 9 28; Sub 53 53 28; Mul 28 9 95; Mul 66 8 42; Add 28 28 66; Mul 66 92 28; Add 53 53 66; Mul 53 97 53;
  Sub 69 69 53; Sq 53 69; Add 83 83 53; Lit 53 (-49996528554077319) 19; Lit 66 (-117950866) 8; Mul 66 66 45;
  Mul 45 45 66; Add 53 53 45; Sub 53 53 21; Mul 45 34 66; Lit 39 (-76792798099477713) 18; Mul 94 39 17;
  Add 45 45 94; Mul 94 58 45; Mul 101 39 34; Mul 102 17 66; Sub 101 101 102; Mul 102 44 101; Sub 94 94 102;
  Add 94 53 94; Mul 102 49 94; Mul 39 39 52; Add 65 65 39; Mul 39 17 65; Mul 52 52 66; Add 20 20 52;
  Mul 52 34 20; Add 39 39 52; Mul 52 51 45; Add 39 39 52; Mul 52 61 39; Sub 102 102 52; Mul 52 73 45;
  Sub 102 102 52; Mul 52 9 102; Mul 39 49 39; Mul 94 61 94; Add 39 39 94; Mul 94 78 45; Add 39 39 94;
  Mul 94 8 39; Add 52 52 94; Mul 45 86 45; Mul 94 61 101; Mul 66 8 94; Mul 103 49 101; Mul 104 9 103;
  Add 66 66 104; Mul 66 92 66; Sub 45 45 66; Add 52 52 45; Mul 52 98 52; Mul 102 8 102; Mul 39 9 39;
  Sub 102 102 39; Mul 39 9 94; Mul 45 8 103; Sub 39 39 45; Mul 45 92 39; Add 102 102 45; Mul 102 97 102;
  Sub 52 52 102; Sq 102 52; Add 83 83 102; Lit 102 (-56493592345755437) 20; Lit 45 (-77356633259099993) 21;
  Mul 66 45 16; Lit 104 (-15538400738948999) 19; Mul 105 104 15; Sub 66 66 105; Mul 105 24 66; Mul 104 104 16;
  Mul 45 45 15; Add 104 104 45; Mul 45 31 104; Sub 105 105 45; Add 102 102 105; Mul 105 17 102;
  Lit 45 (-79500600643088921) 22; Mul 106 45 16; Lit 107 1475867732684376 19; Mul 108 107 15; Add 106 106 108;
  Lit 108 18848000000000001 17; Mul 109 108 66; Sub 106 106 109; Mul 109 34 106; Add 105 105 109; Mul 109 44 66;
  Mul 110 17 104; Mul 111 51 110; Sub 109 109 111; Add 105 105 109; Mul 109 61 105; Mul 107 107 16;
  Mul 45 45 15; Sub 107 107 45; Mul 45 108 104; Add 107 107 45; Mul 45 58 110; Mul 104 34 104; Mul 111 44 104;
  Sub 45 45 111; Add 45 107 45; Mul 111 49 45; Add 109 109 111; Mul 111 73 110; Sub 109 109 111; Mul 111 9 109;
  Mul 45 61 45; Mul 105 49 105; Sub 45 45 105; Mul 105 78 110; Add 45 45 105; Mul 105 8 45; Add 111 111 105;
  Mul 110 86 110; Mul 105 61 104; Mul 112 49 66; Add 105 105 112; Mul 112 8 105; Mul 113 61 66; Mul 114 49 104;
  Sub 113 113 114; Mul 114 9 113; Sub 112 112 114; Mul 112 92 112; Sub 110 110 112; Add 111 111 110;
  Mul 111 98 111; Mul 109 8 109; Mul 45 9 45; Sub 109 109 45].
Definition casadi_f0_5 : list instruction := [
  Mul 45 9 105; Mul 110 8 113; Add 45 45 110; Mul 110 92 45; Add 109 109 110; Mul 109 97 109; Sub 111 111 109;
  Sq 109 111; Add 83 83 109; Sqrt 83 83; Div 6 6 83; Arg 109 1 0; Lit 110 77619844000000005 17; Lit 112 5 1;
  Lit 114 14324999999999999 17; Arg 115 0 0; Cos 116 115; Mul 117 116 97; Mul 118 98 0; Mul 119 117 118;
  Sin 115 115; Mul 120 115 1; Sub 119 119 120; Mul 120 116 98; Mul 121 97 0; Mul 122 120 121; Sub 119 119 122;
  Mul 122 114 119; Mul 123 112 122; Mul 123 110 123; Mul 124 115 98; Mul 125 85 124; Mul 126 91 116;
  Add 125 125 126; Mul 126 123 125; Mul 127 116 1; Mul 128 115 97; Mul 129 128 118; Add 127 127 129;
  Mul 129 124 121; Sub 127 127 129; Mul 129 114 127; Mul 130 112 129; Mul 130 110 130; Mul 131 85 120;
  Mul 132 91 115; Sub 131 131 132; Mul 132 130 131; Sub 132 126 132; Mul 133 125 123; Mul 134 131 130;
  Sub 134 133 134; Add 135 132 134; Lit 136 (-15999999999999999) 22; Mul 137 136 98;
  Lit 138 (-70837400000000007) 19; Mul 139 138 97; Sub 137 137 139; Mul 139 137 120; Mul 140 33 97;
  Mul 141 140 115; Add 139 139 141; Mul 141 99 116; Sub 139 139 141; Mul 141 110 131; Mul 142 85 97;
  Sub 142 114 142; Mul 143 141 142; Sub 143 139 143; Mul 144 112 127; Mul 145 143 144; Mul 146 137 124;
  Mul 140 140 116; Sub 146 146 140; Mul 99 99 115; Sub 146 146 99; Mul 99 110 125; Mul 99 99 142; Sub 99 146 99;
  Mul 140 112 119; Mul 147 99 140; Sub 148 145 147; Sub 135 135 148; Mul 148 140 99; Mul 149 144 143;
  Sub 150 148 149; Add 135 135 150; Mul 150 120 8; Mul 151 117 9; Add 150 150 151; Mul 151 9 118; Mul 152 8 121;
  Sub 151 151 152; Mul 152 150 151; Mul 117 117 8; Mul 153 120 9; Sub 117 117 153; Mul 153 9 121; Mul 154 8 118;
  Add 153 153 154; Mul 154 117 153; Sub 155 1 2; Mul 156 115 155; Sub 154 154 156; Add 152 152 154;
  Mul 154 112 152; Lit 156 (-1297473) 8; Mul 157 98 9; Mul 158 97 8; Sub 157 157 158; Mul 158 156 157;
  Lit 159 (-52687799999999998) 19; Mul 160 97 9; Mul 161 98 8; Add 160 160 161; Mul 161 159 160;
  Add 158 158 161; Mul 161 124 8; Mul 162 128 9; Add 161 161 162; Mul 162 158 161; Mul 163 62 157;
  Lit 164 29179999999999998 21; Mul 165 164 160; Add 163 163 165; Mul 165 163 116; Add 162 162 165;
  Mul 165 48 150; Mul 166 82 115; Add 165 165 166; Sub 162 162 165; Lit 165 118070539 8; Mul 166 86 124;
  Mul 167 92 116; Add 166 166 167; Mul 167 67 161; Mul 168 68 116; Mul 169 128 8; Mul 170 124 9;
  Sub 169 169 170; Mul 170 72 169; Add 168 168 170; Add 167 167 168; Add 167 166 167; Mul 168 165 167;
  Mul 170 86 97; Sub 170 114 170; Mul 171 67 157; Mul 172 72 160].
Definition casadi_f0_6 : list instruction := [
  Add 171 171 172; Add 171 170 171; Mul 168 168 171; Sub 168 162 168; Mul 172 154 168; Mul 173 161 151;
  Mul 174 116 155; Mul 175 169 153; Add 174 174 175; Add 173 173 174; Mul 174 112 173; Mul 175 158 150;
  Mul 163 163 115; Sub 175 175 163; Mul 82 82 116; Mul 163 48 161; Sub 82 82 163; Sub 175 175 82; Mul 82 86 120;
  Mul 163 92 115; Sub 82 82 163; Mul 163 67 150; Mul 176 72 117; Mul 177 68 115; Sub 176 176 177;
  Add 163 163 176; Add 163 82 163; Mul 176 165 163; Mul 177 176 171; Sub 177 175 177; Mul 178 174 177;
  Sub 179 172 178; Mul 180 92 118; Mul 181 9 180; Mul 182 86 1; Mul 183 92 121; Add 182 182 183; Mul 183 8 182;
  Sub 181 181 183; Mul 183 160 181; Mul 180 8 180; Mul 182 9 182; Add 180 180 182; Mul 182 157 180;
  Sub 183 183 182; Mul 182 82 173; Mul 184 166 152; Sub 182 182 184; Add 183 183 182; Mul 182 112 183;
  Mul 182 165 182; Mul 184 171 182; Mul 185 117 181; Mul 186 86 118; Mul 187 115 186; Sub 185 185 187;
  Mul 187 150 180; Sub 185 185 187; Mul 187 157 151; Mul 188 160 153; Add 187 187 188; Mul 188 166 187;
  Mul 189 170 173; Sub 188 188 189; Add 185 185 188; Mul 188 112 185; Mul 188 165 188; Mul 189 188 163;
  Mul 190 116 186; Mul 191 169 181; Add 190 190 191; Mul 191 161 180; Sub 190 190 191; Mul 191 170 152;
  Mul 192 82 187; Sub 191 191 192; Add 190 190 191; Mul 191 112 190; Mul 191 165 191; Mul 192 191 167;
  Mul 193 182 171; Add 194 192 193; Add 189 189 194; Sub 195 184 189; Mul 196 163 188; Mul 197 167 191;
  Add 184 197 184; Add 196 196 184; Sub 193 193 196; Add 195 195 193; Mul 193 177 174; Mul 198 168 154;
  Sub 199 193 198; Add 195 195 199; Sub 179 179 195; Mul 195 150 61; Mul 199 117 49; Sub 195 195 199;
  Mul 199 61 151; Mul 200 49 153; Sub 199 199 200; Mul 200 195 199; Mul 201 150 49; Mul 202 117 61;
  Add 201 201 202; Mul 202 49 151; Mul 203 61 153; Add 202 202 203; Mul 203 201 202; Add 204 3 155;
  Mul 205 115 204; Sub 203 203 205; Add 200 200 203; Mul 203 112 200; Lit 205 (-37809999999999992) 21;
  Mul 206 157 61; Mul 207 160 49; Sub 206 206 207; Mul 207 205 206; Lit 208 (-54772000000000002) 20;
  Mul 209 157 49; Mul 210 160 61; Add 209 209 210; Mul 210 208 209; Add 207 207 210; Mul 210 161 61;
  Mul 211 169 49; Sub 210 210 211; Mul 211 207 210; Mul 212 79 206; Lit 213 (-68399999999999997) 22;
  Mul 214 213 209; Add 212 212 214; Mul 214 212 116; Add 211 211 214; Mul 214 29 195; Mul 215 63 115;
  Add 214 214 215; Sub 211 211 214; Lit 214 47384665999999998 17; Mul 215 78 161; Mul 216 73 169;
  Add 215 215 216; Add 215 166 215; Mul 216 57 210; Mul 217 12 116; Mul 218 161 49; Mul 219 169 61;
  Add 218 218 219].
Definition casadi_f0_7 : list instruction := [
  Mul 219 50 218; Add 217 217 219; Add 216 216 217; Add 216 215 216; Mul 217 214 216; Mul 219 78 157;
  Mul 160 73 160; Add 219 219 160; Add 219 170 219; Mul 160 57 206; Mul 220 50 209; Add 160 160 220;
  Add 160 219 160; Mul 217 217 160; Sub 217 211 217; Mul 220 203 217; Mul 221 210 199; Mul 222 116 204;
  Mul 223 218 202; Add 222 222 223; Add 221 221 222; Mul 222 112 221; Mul 223 207 195; Mul 212 212 115;
  Sub 223 223 212; Mul 63 63 116; Mul 212 29 210; Sub 63 63 212; Sub 223 223 63; Mul 63 78 150; Mul 117 73 117;
  Add 63 63 117; Add 63 82 63; Mul 117 57 195; Mul 212 50 201; Mul 224 12 115; Sub 212 212 224; Add 117 117 212;
  Add 117 63 117; Mul 212 214 117; Mul 224 212 160; Sub 224 223 224; Mul 225 222 224; Sub 226 220 225;
  Mul 227 73 155; Sub 227 227 180; Mul 180 61 227; Mul 155 78 155; Sub 181 181 155; Mul 155 49 181;
  Sub 180 180 155; Mul 155 206 180; Mul 227 49 227; Mul 181 61 181; Add 227 227 181; Mul 181 209 227;
  Add 155 155 181; Mul 181 63 221; Mul 228 215 200; Sub 181 181 228; Add 155 155 181; Mul 181 112 155;
  Mul 181 214 181; Mul 228 160 181; Mul 229 195 180; Mul 230 201 227; Mul 151 73 151; Mul 153 78 153;
  Sub 151 151 153; Sub 186 186 151; Mul 151 115 186; Sub 230 230 151; Add 229 229 230; Mul 230 206 199;
  Mul 151 209 202; Add 230 230 151; Mul 151 215 230; Mul 153 219 221; Sub 151 151 153; Add 229 229 151;
  Mul 151 112 229; Mul 151 214 151; Mul 153 151 117; Mul 231 210 180; Mul 232 116 186; Mul 233 218 227;
  Add 232 232 233; Add 231 231 232; Mul 232 219 200; Mul 233 63 230; Sub 232 232 233; Add 231 231 232;
  Mul 232 112 231; Mul 232 214 232; Mul 233 232 216; Mul 234 181 160; Add 235 233 234; Add 153 153 235;
  Sub 236 228 153; Mul 237 117 151; Mul 238 216 232; Add 228 238 228; Add 237 237 228; Sub 234 234 237;
  Add 236 236 234; Mul 234 224 222; Mul 239 217 203; Sub 240 234 239; Add 236 236 240; Sub 226 226 236;
  Mul 236 195 17; Mul 240 115 34; Add 236 236 240; Mul 240 17 199; Mul 241 34 204; Sub 240 240 241;
  Mul 241 236 240; Mul 242 195 34; Mul 243 115 17; Sub 242 242 243; Mul 243 34 199; Mul 244 17 204;
  Add 243 243 244; Mul 244 242 243; Sub 245 202 4; Mul 246 201 245; Add 244 244 246; Add 241 241 244;
  Mul 244 112 241; Lit 246 26809999999999996 21; Mul 247 206 17; Mul 248 246 247; Mul 249 206 34;
  Mul 250 37 249; Lit 251 71999999999999997 22; Mul 252 251 209; Add 250 250 252; Add 248 248 250;
  Mul 250 210 17; Mul 252 116 34; Sub 250 250 252; Mul 252 248 250; Mul 253 37 247; Lit 254 2497 8;
  Mul 255 254 249; Add 253 253 255; Mul 255 210 34; Mul 256 116 17; Add 255 255 256].
Definition casadi_f0_8 : list instruction := [
  Mul 256 253 255; Add 252 252 256; Mul 256 64 242; Add 252 252 256; Lit 256 37429752999999999 17;
  Mul 257 58 210; Mul 258 44 116; Mul 259 51 218; Add 258 258 259; Add 257 257 258; Add 257 215 257;
  Lit 258 35419999999999991 19; Mul 259 258 250; Mul 260 23 255; Mul 261 30 218; Add 260 260 261;
  Add 259 259 260; Add 259 257 259; Mul 260 256 259; Mul 261 58 206; Mul 262 51 209; Add 261 261 262;
  Add 261 219 261; Mul 262 258 247; Mul 263 23 249; Mul 264 30 209; Add 263 263 264; Add 262 262 263;
  Add 262 261 262; Mul 260 260 262; Sub 260 252 260; Mul 263 244 260; Mul 264 250 240; Mul 265 255 243;
  Mul 266 218 245; Add 265 265 266; Add 264 264 265; Mul 265 112 264; Mul 266 248 236; Mul 267 253 242;
  Add 266 266 267; Mul 267 64 255; Sub 266 266 267; Mul 267 58 195; Mul 268 51 201; Mul 269 44 115;
  Sub 268 268 269; Add 267 267 268; Add 267 63 267; Mul 268 258 236; Mul 269 23 242; Mul 270 30 201;
  Add 269 269 270; Add 268 268 269; Add 268 267 268; Mul 269 256 268; Mul 270 269 262; Sub 270 266 270;
  Mul 271 265 270; Sub 272 263 271; Mul 273 44 202; Mul 274 51 204; Sub 273 273 274; Sub 180 180 273;
  Mul 273 17 180; Mul 274 51 199; Mul 202 58 202; Sub 274 274 202; Sub 186 186 274; Mul 274 34 186;
  Sub 273 273 274; Mul 274 247 273; Mul 180 34 180; Mul 186 17 186; Add 180 180 186; Mul 186 249 180;
  Mul 204 58 204; Mul 199 44 199; Sub 204 204 199; Sub 227 227 204; Mul 204 209 227; Add 186 186 204;
  Add 274 274 186; Mul 186 267 264; Mul 204 257 241; Sub 186 186 204; Add 274 274 186; Mul 186 112 274;
  Mul 186 256 186; Mul 204 262 186; Mul 199 236 273; Mul 202 242 180; Mul 275 201 227; Add 202 202 275;
  Add 199 199 202; Mul 202 247 240; Mul 275 249 243; Mul 276 209 245; Add 275 275 276; Add 202 202 275;
  Mul 275 257 202; Mul 276 261 264; Sub 275 275 276; Add 199 199 275; Mul 275 112 199; Mul 275 256 275;
  Mul 276 275 268; Mul 277 250 273; Mul 278 255 180; Mul 279 218 227; Add 278 278 279; Add 277 277 278;
  Mul 278 261 241; Mul 279 267 202; Sub 278 278 279; Add 277 277 278; Mul 278 112 277; Mul 278 256 278;
  Mul 279 278 259; Mul 280 186 262; Add 281 279 280; Add 276 276 281; Sub 282 204 276; Mul 283 268 275;
  Mul 284 259 278; Add 204 284 204; Add 283 283 204; Sub 280 280 283; Add 282 282 280; Mul 280 270 265;
  Mul 285 260 244; Sub 286 280 285; Add 282 282 286; Sub 272 272 282; Sub 282 240 5; Mul 286 236 282;
  Mul 287 242 16; Mul 288 201 15; Sub 287 287 288; Mul 288 16 243; Mul 289 15 245; Sub 288 288 289;
  Mul 289 287 288; Mul 290 242 15; Mul 291 201 16; Add 290 290 291; Mul 291 15 243; Mul 292 16 245;
  Add 291 291 292].
Definition casadi_f0_9 : list instruction := [
  Mul 292 290 291; Add 289 289 292; Add 286 286 289; Mul 289 112 286; Lit 292 (-74054000000000004) 20;
  Mul 293 292 247; Mul 294 249 16; Mul 295 209 15; Sub 294 294 295; Mul 295 38 294; Mul 296 249 15;
  Mul 297 209 16; Add 296 296 297; Mul 297 40 296; Add 295 295 297; Add 293 293 295; Mul 295 293 250;
  Mul 297 38 247; Mul 298 14 294; Mul 299 18 296; Add 298 298 299; Add 297 297 298; Mul 298 255 16;
  Mul 299 218 15; Sub 298 298 299; Mul 299 297 298; Add 295 295 299; Mul 299 41 287;
  Lit 300 41189999999999997 21; Mul 301 300 236; Sub 299 299 301; Add 295 295 299; Lit 299 80521113 8;
  Mul 301 108 250; Mul 302 24 255; Mul 303 31 218; Add 302 302 303; Add 301 301 302; Add 301 257 301;
  Lit 302 (-94756709999999994) 18; Mul 303 302 250; Mul 304 25 298; Mul 305 255 15; Mul 306 218 16;
  Add 305 305 306; Mul 306 27 305; Add 304 304 306; Add 303 303 304; Add 303 301 303; Mul 304 299 303;
  Mul 306 108 247; Mul 307 24 249; Mul 308 31 209; Add 307 307 308; Add 306 306 307; Add 306 261 306;
  Mul 307 302 247; Mul 308 25 294; Mul 309 27 296; Add 308 308 309; Add 307 307 308; Add 307 306 307;
  Mul 304 304 307; Sub 304 295 304; Mul 308 289 304; Mul 309 250 282; Mul 310 298 288; Mul 311 305 291;
  Add 310 310 311; Add 309 309 310; Mul 310 112 309; Mul 311 293 236; Mul 312 297 287; Add 311 311 312;
  Mul 312 41 298; Mul 313 300 250; Sub 312 312 313; Sub 311 311 312; Mul 312 108 236; Mul 313 24 242;
  Mul 314 31 201; Add 313 313 314; Add 312 312 313; Add 312 267 312; Mul 313 302 236; Mul 314 25 287;
  Mul 315 27 290; Add 314 314 315; Add 313 313 314; Add 313 312 313; Mul 314 299 313; Mul 315 314 307;
  Sub 315 311 315; Mul 316 310 315; Sub 317 308 316; Mul 318 24 245; Mul 319 31 243; Sub 318 318 319;
  Sub 273 273 318; Mul 318 247 273; Mul 319 31 240; Mul 245 108 245; Sub 319 319 245; Sub 180 180 319;
  Mul 319 16 180; Mul 243 108 243; Mul 240 24 240; Sub 243 243 240; Sub 227 227 243; Mul 243 15 227;
  Sub 319 319 243; Mul 243 294 319; Mul 180 15 180; Mul 227 16 227; Add 180 180 227; Mul 227 296 180;
  Add 243 243 227; Add 318 318 243; Mul 243 312 309; Mul 227 301 286; Sub 243 243 227; Add 318 318 243;
  Mul 243 112 318; Mul 243 299 243; Mul 227 307 243; Mul 240 236 273; Mul 245 287 319; Mul 290 290 180;
  Add 245 245 290; Add 240 240 245; Mul 282 247 282; Mul 288 294 288; Mul 296 296 291; Add 288 288 296;
  Add 282 282 288; Mul 288 301 282; Mul 296 306 309; Sub 288 288 296; Add 240 240 288; Mul 288 112 240;
  Mul 288 299 288; Mul 296 288 313; Mul 273 250 273; Mul 319 298 319; Mul 180 305 180; Add 319 319 180;
  Add 273 273 319; Mul 319 306 286; Mul 180 312 282].
Definition casadi_f0_10 : list instruction := [
  Sub 319 319 180; Add 273 273 319; Mul 319 112 273; Mul 319 299 319; Mul 180 319 303; Mul 291 243 307;
  Add 245 180 291; Add 296 296 245; Sub 290 227 296; Mul 320 313 288; Mul 321 303 319; Add 227 321 227;
  Add 320 320 227; Sub 291 291 320; Add 290 290 291; Mul 291 315 310; Mul 322 304 289; Sub 323 291 322;
  Add 290 290 323; Sub 317 317 290; Add 272 272 317; Add 226 226 272; Add 179 179 226; Add 135 135 179;
  Mul 135 135 0; Mul 137 137 97; Sub 179 7 137; Mul 158 158 157; Add 226 158 77; Mul 207 207 206;
  Add 290 207 55; Mul 248 248 247; Mul 253 253 249; Add 248 248 253; Add 253 248 35; Mul 293 293 247;
  Mul 297 297 294; Add 293 293 297; Add 297 293 22; Add 323 253 297; Sub 324 268 313; Sq 325 324;
  Sub 326 259 303; Sq 327 326; Add 328 325 327; Mul 328 19 328; Add 323 323 328; Add 328 290 323;
  Lit 329 31733343102372813 17; Mul 330 329 268; Mul 331 46 313; Add 330 330 331; Sub 331 117 330; Sq 332 331;
  Mul 333 329 259; Mul 334 46 303; Add 333 333 334; Sub 334 216 333; Sq 335 334; Add 336 332 335;
  Mul 336 36 336; Add 328 328 336; Add 336 226 328; Lit 337 28659699114162585 17; Mul 338 337 117;
  Mul 339 70 330; Add 338 338 339; Sub 339 163 338; Sq 340 339; Mul 341 337 216; Mul 342 70 333;
  Add 341 341 342; Sub 342 167 341; Sq 343 342; Add 344 340 343; Mul 344 11 344; Add 336 336 344;
  Add 344 179 336; Lit 345 41661259613595214 17; Mul 346 345 163; Mul 347 88 338; Add 346 346 347;
  Sub 347 131 346; Sq 348 347; Mul 349 345 167; Mul 350 88 341; Add 349 349 350; Sub 350 125 349; Sq 351 350;
  Add 352 348 351; Mul 352 84 352; Add 344 344 352; Mul 352 119 116; Mul 353 127 115; Add 352 352 353;
  Mul 344 344 352; Add 353 266 311; Mul 324 19 324; Sub 354 262 307; Mul 355 324 354; Sub 353 353 355;
  Add 355 223 353; Mul 331 36 331; Mul 329 329 262; Mul 46 46 307; Add 329 329 46; Sub 46 160 329;
  Mul 356 331 46; Sub 355 355 356; Add 356 175 355; Mul 339 11 339; Mul 337 337 160; Mul 70 70 329;
  Add 337 337 70; Sub 70 171 337; Mul 357 339 70; Sub 356 356 357; Add 357 139 356; Mul 347 84 347;
  Mul 345 345 171; Mul 88 88 337; Add 345 345 88; Sub 88 142 345; Mul 358 347 88; Sub 357 357 358;
  Mul 121 97 121; Mul 118 98 118; Add 121 121 118; Mul 118 121 116; Mul 358 357 118; Add 359 252 295;
  Mul 360 19 326; Mul 360 360 354; Sub 359 359 360; Add 360 211 359; Mul 361 36 334; Mul 361 361 46;
  Sub 360 360 361; Add 361 162 360; Mul 362 11 342; Mul 362 362 70; Sub 361 361 362; Add 362 146 361;
  Mul 363 84 350; Mul 363 363 88; Sub 362 362 363; Mul 363 121 115; Mul 364 362 363; Add 358 358 364].
Definition casadi_f0_11 : list instruction := [
  Sub 344 344 358; Lit 358 21499798428597569 17; Mul 364 358 131; Mul 365 96 346; Add 364 364 365;
  Mul 365 358 142; Mul 366 96 345; Add 365 365 366; Mul 366 365 118; Mul 367 364 352; Add 366 366 367;
  Mul 367 114 116; Mul 368 121 367; Sub 366 366 368; Mul 366 26 366; Mul 369 364 366; Mul 358 358 125;
  Mul 96 96 349; Add 358 358 96; Mul 114 114 115; Mul 96 121 114; Mul 370 358 352; Mul 371 365 363;
  Add 370 370 371; Sub 370 96 370; Mul 370 26 370; Mul 371 358 370; Sub 369 369 371; Add 344 344 369;
  Mul 138 138 124; Mul 369 33 116; Mul 136 136 128; Add 369 369 136; Add 138 138 369; Mul 369 138 124;
  Mul 33 33 124; Lit 124 (-76072000000000032) 20; Mul 124 124 116; Add 33 33 124; Mul 124 33 116;
  Add 369 369 124; Add 124 369 7; Sq 136 131; Sq 128 142; Add 371 136 128; Mul 371 110 371; Add 371 124 371;
  Mul 372 140 371; Mul 138 138 120; Mul 33 33 115; Sub 138 138 33; Mul 141 141 125; Sub 141 138 141;
  Mul 33 144 141; Sub 372 372 33; Mul 33 142 123; Sq 120 125; Add 136 136 120; Mul 136 110 136; Add 136 179 136;
  Mul 373 136 140; Mul 374 112 121; Mul 375 143 374; Sub 373 373 375; Add 33 33 373; Sub 372 372 33;
  Lit 33 (-7844460000000001) 18; Sub 33 33 369; Add 33 33 137; Add 33 33 7; Mul 7 33 119; Mul 137 138 127;
  Add 7 7 137; Mul 137 139 121; Add 7 7 137; Mul 137 131 127; Mul 369 125 119; Sub 137 137 369; Mul 137 110 137;
  Mul 369 125 137; Mul 373 142 119; Mul 375 131 121; Sub 373 373 375; Sub 373 122 373; Mul 373 110 373;
  Mul 375 142 373; Add 369 369 375; Sub 7 7 369; Mul 7 112 7; Sub 372 372 7; Mul 156 156 161; Mul 369 62 116;
  Mul 159 159 169; Add 369 369 159; Add 156 156 369; Mul 369 156 161; Mul 62 62 161;
  Lit 161 50578999999999902 20; Mul 161 161 116; Mul 164 164 169; Add 161 161 164; Add 62 62 161;
  Mul 161 62 116; Add 369 369 161; Add 161 369 77; Sq 164 163; Sq 169 171; Add 159 164 169; Mul 159 165 159;
  Add 159 161 159; Mul 375 154 159; Mul 156 156 150; Mul 62 62 115; Sub 156 156 62; Mul 48 48 157;
  Sub 156 156 48; Mul 176 176 167; Sub 176 156 176; Mul 48 174 176; Sub 375 375 48; Mul 48 171 191;
  Mul 157 182 167; Add 48 48 157; Sq 157 167; Add 164 164 157; Mul 164 165 164; Add 164 226 164; Mul 62 164 154;
  Mul 150 112 187; Mul 376 177 150; Sub 62 62 376; Add 48 48 62; Sub 375 375 48; Lit 48 (-12468940000000001) 18;
  Sub 48 48 369; Sub 48 48 158; Add 48 48 77; Mul 77 48 152; Mul 158 156 173; Add 77 77 158; Mul 158 175 187;
  Add 77 77 158; Mul 158 163 173; Mul 369 167 152; Sub 158 158 369; Sub 158 183 158; Mul 158 165 158;
  Mul 369 167 158; Mul 62 171 152].
Definition casadi_f0_12 : list instruction := [
  Mul 376 163 187; Sub 62 62 376; Sub 62 190 62; Mul 62 165 62; Mul 376 171 62; Sub 369 369 376; Add 77 77 369;
  Mul 77 112 77; Sub 375 375 77; Mul 205 205 210; Mul 369 79 116; Mul 208 208 218; Add 369 369 208;
  Add 205 205 369; Mul 369 205 210; Mul 79 79 210; Lit 210 9511000000000003 20; Mul 210 210 116;
  Mul 213 213 218; Add 210 210 213; Add 79 79 210; Mul 210 79 116; Add 369 369 210; Add 210 369 55; Sq 213 117;
  Sq 208 160; Add 376 213 208; Mul 376 214 376; Add 376 210 376; Mul 377 203 376; Mul 205 205 195;
  Mul 79 79 115; Sub 205 205 79; Mul 29 29 206; Sub 205 205 29; Mul 212 212 216; Sub 212 205 212;
  Mul 29 222 212; Sub 377 377 29; Mul 29 160 232; Mul 206 181 216; Add 29 29 206; Sq 206 216; Add 213 213 206;
  Mul 213 214 213; Add 213 290 213; Mul 79 213 203; Mul 195 112 230; Mul 378 224 195; Sub 79 79 378;
  Add 29 29 79; Sub 377 377 29; Lit 29 57300000000000038 21; Sub 29 29 369; Sub 29 29 207; Add 29 29 55;
  Mul 55 29 200; Mul 207 205 221; Add 55 55 207; Mul 207 223 230; Add 55 55 207; Mul 207 117 221;
  Mul 369 216 200; Sub 207 207 369; Sub 207 155 207; Mul 207 214 207; Mul 369 216 207; Mul 79 160 200;
  Mul 378 117 230; Sub 79 79 378; Sub 79 231 79; Mul 79 214 79; Mul 378 160 79; Sub 369 369 378; Add 55 55 369;
  Mul 55 112 55; Sub 377 377 55; Mul 246 246 250; Mul 369 37 255; Mul 251 251 218; Add 369 369 251;
  Add 246 246 369; Mul 369 246 250; Mul 37 37 250; Mul 254 254 255; Add 37 37 254; Mul 255 37 255;
  Add 369 369 255; Add 255 369 35; Sq 254 268; Sq 251 262; Add 378 254 251; Mul 378 256 378; Add 378 255 378;
  Mul 379 244 378; Mul 246 246 236; Mul 37 37 242; Add 246 246 37; Mul 64 64 249; Add 246 246 64;
  Mul 269 269 259; Sub 269 246 269; Mul 64 265 269; Sub 379 379 64; Mul 64 262 278; Mul 249 186 259;
  Add 64 64 249; Sq 249 259; Add 254 254 249; Mul 254 256 254; Add 254 253 254; Mul 37 254 244; Mul 242 112 202;
  Mul 380 270 242; Sub 37 37 380; Add 64 64 37; Sub 379 379 64; Lit 64 51779999999999996 21; Sub 64 64 369;
  Sub 64 64 248; Add 64 64 35; Mul 35 64 241; Mul 248 246 264; Add 35 35 248; Mul 248 266 202; Add 35 35 248;
  Mul 248 268 264; Mul 369 259 241; Sub 248 248 369; Sub 248 274 248; Mul 248 256 248; Mul 369 259 248;
  Mul 37 262 241; Mul 380 268 202; Sub 37 37 380; Sub 37 277 37; Mul 37 256 37; Mul 380 262 37; Sub 369 369 380;
  Add 35 35 369; Mul 35 112 35; Sub 379 379 35; Mul 292 292 250; Mul 369 38 298; Mul 40 40 305; Add 369 369 40;
  Add 292 292 369; Mul 369 292 250; Mul 38 38 250].
Definition casadi_f0_13 : list instruction := [
  Mul 14 14 298; Mul 18 18 305; Add 14 14 18; Add 38 38 14; Mul 298 38 298; Add 369 369 298; Add 298 369 22;
  Sq 14 313; Sq 18 307; Add 305 14 18; Mul 305 299 305; Add 305 298 305; Mul 40 289 305; Mul 292 292 236;
  Mul 38 38 287; Add 292 292 38; Mul 41 41 294; Mul 300 300 247; Sub 41 41 300; Add 292 292 41; Mul 314 314 303;
  Sub 314 292 314; Mul 41 310 314; Sub 40 40 41; Mul 41 307 319; Mul 300 243 303; Add 41 41 300; Sq 300 303;
  Add 14 14 300; Mul 14 299 14; Add 14 297 14; Mul 294 14 289; Mul 38 112 282; Mul 287 315 38; Sub 294 294 287;
  Add 41 41 294; Sub 40 40 41; Sub 13 13 369; Sub 13 13 293; Add 13 13 22; Mul 22 13 286; Mul 293 292 309;
  Add 22 22 293; Mul 293 311 282; Add 22 22 293; Mul 293 313 309; Mul 369 303 286; Sub 293 293 369;
  Sub 293 318 293; Mul 293 299 293; Mul 369 303 293; Mul 41 307 286; Mul 294 313 282; Sub 41 41 294;
  Sub 41 273 41; Mul 41 299 41; Mul 294 307 41; Sub 369 369 294; Add 22 22 369; Mul 22 112 22; Sub 40 40 22;
  Add 379 379 40; Add 377 377 379; Add 375 375 377; Add 372 372 375; Mul 372 372 116; Mul 369 142 130;
  Mul 294 99 374; Mul 287 136 144; Sub 294 294 287; Sub 369 369 294; Mul 294 140 141; Add 120 120 128;
  Mul 120 110 120; Add 120 33 120; Mul 128 144 120; Sub 294 294 128; Add 369 369 294; Mul 294 138 119;
  Mul 128 124 127; Add 294 294 128; Mul 128 146 121; Add 294 294 128; Mul 128 131 137; Mul 287 125 121;
  Mul 380 142 127; Sub 287 287 380; Add 287 129 287; Mul 287 110 287; Mul 380 142 287; Sub 128 128 380;
  Add 294 294 128; Mul 294 112 294; Add 369 369 294; Mul 128 154 176; Add 157 157 169; Mul 157 165 157;
  Add 157 48 157; Mul 169 174 157; Sub 128 128 169; Mul 169 171 188; Mul 380 182 163; Add 169 169 380;
  Mul 380 168 150; Mul 381 164 174; Sub 380 380 381; Add 169 169 380; Sub 128 128 169; Mul 169 156 152;
  Mul 380 161 173; Add 169 169 380; Mul 380 162 187; Add 169 169 380; Mul 380 167 187; Mul 381 171 173;
  Sub 380 380 381; Sub 380 185 380; Mul 380 165 380; Mul 381 171 380; Mul 382 163 158; Sub 381 381 382;
  Add 169 169 381; Mul 169 112 169; Add 128 128 169; Mul 381 203 212; Add 206 206 208; Mul 206 214 206;
  Add 206 29 206; Mul 208 222 206; Sub 381 381 208; Mul 208 160 151; Mul 382 181 117; Add 208 208 382;
  Mul 382 217 195; Mul 383 213 222; Sub 382 382 383; Add 208 208 382; Sub 381 381 208; Mul 208 205 200;
  Mul 382 210 221; Add 208 208 382; Mul 382 211 230; Add 208 208 382; Mul 382 216 230; Mul 383 160 221;
  Sub 382 382 383; Sub 382 229 382; Mul 382 214 382; Mul 383 160 382].
Definition casadi_f0_14 : list instruction := [
  Mul 384 117 207; Sub 383 383 384; Add 208 208 383; Mul 208 112 208; Add 381 381 208; Mul 383 244 269;
  Add 249 249 251; Mul 249 256 249; Add 249 64 249; Mul 251 265 249; Sub 383 383 251; Mul 251 262 275;
  Mul 384 186 268; Add 251 251 384; Mul 384 260 242; Mul 385 254 265; Sub 384 384 385; Add 251 251 384;
  Sub 383 383 251; Mul 251 246 241; Mul 384 255 264; Add 251 251 384; Mul 384 252 202; Add 251 251 384;
  Mul 384 259 202; Mul 385 262 264; Sub 384 384 385; Sub 384 199 384; Mul 384 256 384; Mul 385 262 384;
  Mul 386 268 248; Sub 385 385 386; Add 251 251 385; Mul 251 112 251; Add 383 383 251; Mul 385 289 314;
  Add 300 300 18; Mul 300 299 300; Add 300 13 300; Mul 18 310 300; Sub 385 385 18; Mul 18 307 288;
  Mul 386 243 313; Add 18 18 386; Mul 386 304 38; Mul 387 14 310; Sub 386 386 387; Add 18 18 386;
  Sub 385 385 18; Mul 18 292 286; Mul 386 298 309; Add 18 18 386; Mul 386 295 282; Add 18 18 386;
  Mul 386 303 282; Mul 387 307 309; Sub 386 386 387; Sub 386 240 386; Mul 386 299 386; Mul 387 307 386;
  Mul 388 313 293; Sub 387 387 388; Add 18 18 387; Mul 18 112 18; Add 385 385 18; Add 383 383 385;
  Add 381 381 383; Add 128 128 381; Add 369 369 128; Mul 369 369 115; Sub 372 372 369; Mul 369 110 140;
  Mul 387 369 142; Mul 388 110 374; Mul 389 131 388; Add 389 123 389; Sub 387 387 389; Mul 389 112 373;
  Add 390 387 389; Mul 391 165 154; Mul 392 391 171; Mul 393 165 150; Mul 394 163 393; Add 394 191 394;
  Sub 392 392 394; Mul 394 112 62; Add 395 392 394; Mul 396 214 203; Mul 397 396 160; Mul 398 214 195;
  Mul 399 117 398; Add 399 232 399; Sub 397 397 399; Mul 399 112 79; Add 400 397 399; Mul 401 256 244;
  Mul 402 401 262; Mul 403 256 242; Mul 404 268 403; Add 404 278 404; Sub 402 402 404; Mul 404 112 37;
  Add 405 402 404; Mul 406 299 289; Mul 407 406 307; Mul 408 299 38; Mul 409 313 408; Add 409 319 409;
  Sub 407 407 409; Mul 409 112 41; Add 410 407 409; Add 405 405 410; Add 400 400 405; Add 395 395 400;
  Add 390 390 395; Mul 390 390 367; Mul 411 110 144; Mul 412 411 142; Mul 413 125 388; Add 413 130 413;
  Sub 412 412 413; Mul 413 112 287; Add 414 412 413; Mul 415 167 393; Sub 415 188 415; Mul 416 165 174;
  Mul 417 416 171; Add 415 415 417; Mul 417 112 380; Sub 418 415 417; Mul 419 216 398; Sub 419 151 419;
  Mul 420 214 222; Mul 421 420 160; Add 419 419 421; Mul 421 112 382; Sub 422 419 421; Mul 423 259 403;
  Sub 423 275 423; Mul 424 256 265; Mul 425 424 262; Add 423 423 425; Mul 425 112 384; Sub 426 423 425;
  Mul 427 303 408; Sub 427 288 427; Mul 428 299 310; Mul 429 428 307; Add 427 427 429].
Definition casadi_f0_15 : list instruction := [
  Mul 429 112 386; Sub 430 427 429; Add 426 426 430; Add 422 422 426; Add 418 418 422; Add 414 414 418;
  Mul 414 414 114; Add 390 390 414; Sub 372 372 390; Add 344 344 372; Mul 344 344 1; Add 135 135 344;
  Mul 344 187 116; Mul 372 356 344; Mul 390 187 115; Mul 414 361 390; Add 372 372 414; Mul 414 152 116;
  Mul 431 173 115; Add 414 414 431; Mul 336 336 414; Sub 372 372 336; Lit 336 28340607100000001 16;
  Mul 431 183 115; Mul 432 170 116; Mul 433 187 432; Mul 82 82 116; Mul 166 166 115; Add 82 82 166;
  Mul 166 152 82; Add 433 433 166; Add 431 431 433; Mul 433 345 344; Mul 166 346 414; Add 433 433 166;
  Sub 433 431 433; Mul 433 336 433; Mul 166 346 433; Mul 183 183 116; Mul 434 173 82; Mul 170 170 115;
  Mul 435 187 170; Add 434 434 435; Sub 183 183 434; Mul 434 349 414; Mul 435 345 390; Add 434 434 435;
  Add 434 183 434; Mul 434 336 434; Mul 435 349 434; Sub 166 166 435; Add 372 372 166; Mul 395 395 432;
  Mul 418 418 170; Mul 166 393 171; Mul 435 163 391; Mul 436 167 416; Mul 437 171 393; Add 438 436 437;
  Add 435 435 438; Sub 439 166 435; Mul 440 391 163; Mul 441 416 167; Add 166 441 166; Add 440 440 166;
  Sub 437 437 440; Sub 439 439 437; Mul 437 398 160; Mul 442 117 396; Mul 443 216 420; Mul 444 160 398;
  Add 445 443 444; Add 442 442 445; Sub 446 437 442; Mul 447 396 117; Mul 448 420 216; Add 437 448 437;
  Add 447 447 437; Sub 444 444 447; Sub 446 446 444; Mul 444 403 262; Mul 449 268 401; Mul 450 259 424;
  Mul 451 262 403; Add 452 450 451; Add 449 449 452; Sub 453 444 449; Mul 454 401 268; Mul 455 424 259;
  Add 444 455 444; Add 454 454 444; Sub 451 451 454; Sub 453 453 451; Mul 451 408 307; Mul 456 313 406;
  Mul 457 303 428; Mul 458 307 408; Add 459 457 458; Add 456 456 459; Sub 460 451 456; Mul 461 406 313;
  Mul 462 428 303; Add 451 462 451; Add 461 461 451; Sub 458 458 461; Sub 460 460 458; Add 453 453 460;
  Add 446 446 453; Add 439 439 446; Mul 458 439 82; Sub 418 418 458; Add 395 395 418; Mul 128 128 115;
  Mul 375 375 116; Sub 128 128 375; Add 395 395 128; Add 372 372 395; Mul 372 372 2; Add 135 135 372;
  Mul 372 200 116; Mul 395 221 115; Add 372 372 395; Mul 328 328 372; Mul 395 230 116; Mul 128 355 395;
  Mul 375 230 115; Mul 418 360 375; Add 128 128 418; Sub 328 328 128; Mul 128 337 395; Mul 418 338 372;
  Add 128 128 418; Mul 418 155 115; Mul 458 219 116; Mul 463 230 458; Mul 63 63 116; Mul 215 215 115;
  Add 63 63 215; Mul 215 200 63; Add 463 463 215; Add 418 418 463; Sub 128 128 418; Mul 128 59 128;
  Mul 463 338 128; Mul 215 221 63; Mul 219 219 115; Mul 464 230 219; Add 215 215 464; Mul 155 155 116].
Definition casadi_f0_16 : list instruction := [
  Sub 215 215 155; Mul 155 341 372; Mul 464 337 375; Add 155 155 464; Sub 155 215 155; Mul 155 59 155;
  Mul 464 341 155; Sub 463 463 464; Add 328 328 463; Mul 463 446 63; Mul 422 422 219; Sub 463 463 422;
  Mul 400 400 458; Sub 463 463 400; Mul 377 377 116; Mul 381 381 115; Sub 377 377 381; Add 463 463 377;
  Add 328 328 463; Mul 328 328 3; Add 135 135 328; Mul 328 202 218; Mul 463 264 209; Sub 328 328 463;
  Mul 463 353 328; Mul 377 241 209; Mul 381 202 201; Sub 377 377 381; Mul 381 359 377; Add 463 463 381;
  Mul 381 264 201; Mul 400 241 218; Sub 381 381 400; Mul 400 323 381; Add 463 463 400; Lit 400 117950866 8;
  Mul 422 199 209; Mul 464 274 201; Sub 422 422 464; Mul 464 261 218; Mul 465 257 209; Sub 464 464 465;
  Mul 465 202 464; Mul 257 257 201; Mul 466 267 218; Sub 257 257 466; Mul 466 241 257; Sub 465 465 466;
  Add 422 422 465; Mul 465 329 328; Mul 466 330 381; Sub 465 465 466; Sub 465 422 465; Mul 465 400 465;
  Mul 466 330 465; Mul 274 274 218; Mul 467 277 209; Sub 274 274 467; Mul 467 264 257; Mul 267 267 209;
  Mul 261 261 201; Sub 267 267 261; Mul 261 202 267; Sub 467 467 261; Add 274 274 467; Mul 467 333 381;
  Mul 261 329 377; Sub 467 467 261; Sub 467 274 467; Mul 467 400 467; Mul 261 333 467; Sub 466 466 261;
  Add 463 463 466; Mul 466 405 464; Mul 261 426 267; Mul 468 453 257; Add 261 261 468; Add 466 466 261;
  Mul 261 383 201; Mul 468 379 218; Mul 469 272 209; Add 468 468 469; Add 261 261 468; Sub 466 466 261;
  Add 463 463 466; Mul 466 463 4; Add 135 135 466; Mul 466 282 250; Mul 261 309 247; Sub 466 466 261;
  Mul 261 311 466; Mul 468 286 247; Mul 469 282 236; Sub 468 468 469; Mul 469 295 468; Add 261 261 469;
  Mul 469 309 236; Mul 470 286 250; Sub 469 469 470; Mul 470 297 469; Add 261 261 470; Mul 470 240 247;
  Mul 471 318 236; Sub 470 470 471; Mul 471 306 250; Mul 472 301 247; Sub 471 471 472; Mul 472 282 471;
  Mul 301 301 236; Mul 473 312 250; Sub 301 301 473; Mul 473 286 301; Sub 472 472 473; Add 470 470 472;
  Mul 472 307 466; Mul 473 313 469; Sub 472 472 473; Sub 470 470 472; Mul 470 299 470; Mul 472 313 470;
  Mul 318 318 250; Mul 473 273 247; Sub 318 318 473; Mul 473 309 301; Mul 312 312 247; Mul 306 306 236;
  Sub 312 312 306; Mul 306 282 312; Sub 473 473 306; Add 318 318 473; Mul 473 303 469; Mul 306 307 468;
  Sub 473 473 306; Sub 318 318 473; Mul 318 299 318; Mul 473 303 318; Sub 472 472 473; Add 261 261 472;
  Mul 472 410 471; Mul 473 430 312; Mul 306 460 301; Add 473 473 306; Add 472 472 473; Mul 473 385 236;
  Mul 306 40 250; Mul 474 317 247; Add 306 306 474; Add 473 473 306; Sub 472 472 473].
Definition casadi_f0_17 : list instruction := [
  Add 261 261 472; Mul 472 261 5; Add 135 135 472; Sub 109 109 135; Lit 135 98100000000000005 16;
  Mul 472 135 97; Mul 473 110 472; Mul 473 91 473; Mul 306 9 472; Mul 135 135 98; Mul 474 8 135;
  Add 306 306 474; Mul 474 165 306; Mul 475 68 474; Mul 476 9 135; Mul 472 8 472; Sub 476 476 472;
  Mul 472 49 476; Mul 477 61 306; Add 472 472 477; Mul 477 214 472; Mul 478 12 477; Mul 479 256 472;
  Mul 480 23 479; Mul 481 61 476; Mul 306 49 306; Sub 481 481 306; Mul 306 34 481; Mul 482 256 306;
  Mul 483 30 482; Sub 480 480 483; Mul 483 15 306; Mul 484 16 472; Add 483 483 484; Mul 483 299 483;
  Mul 484 25 483; Mul 306 16 306; Mul 472 15 472; Sub 306 306 472; Mul 306 299 306; Mul 472 27 306;
  Sub 484 484 472; Mul 472 16 483; Mul 485 15 306; Sub 472 472 485; Mul 485 24 472; Mul 486 16 306;
  Mul 487 15 483; Add 486 486 487; Mul 487 31 486; Sub 485 485 487; Add 485 484 485; Add 480 480 485;
  Mul 485 17 480; Mul 487 17 481; Mul 256 256 487; Mul 30 30 256; Mul 488 258 479; Sub 30 30 488;
  Mul 487 299 487; Mul 27 27 487; Mul 483 302 483; Sub 27 27 483; Mul 483 16 27; Mul 302 302 306; Mul 25 25 487;
  Sub 302 302 25; Mul 25 15 302; Add 483 483 25; Mul 31 31 487; Mul 25 108 472; Sub 31 31 25; Add 483 483 31;
  Add 30 30 483; Mul 483 34 30; Add 485 485 483; Add 479 479 472; Mul 472 44 479; Add 483 482 486;
  Mul 31 17 483; Add 25 256 487; Mul 306 34 25; Sub 31 31 306; Mul 306 51 31; Sub 472 472 306; Add 485 485 472;
  Add 478 478 485; Mul 485 61 478; Mul 258 258 482; Mul 23 23 256; Sub 258 258 23; Mul 16 16 302; Mul 15 15 27;
  Sub 16 16 15; Mul 108 108 486; Mul 24 24 487; Sub 108 108 24; Add 16 16 108; Add 258 258 16; Mul 16 58 31;
  Mul 25 17 25; Mul 483 34 483; Add 25 25 483; Mul 44 44 25; Sub 16 16 44; Add 16 258 16; Mul 214 214 481;
  Mul 12 12 214; Sub 16 16 12; Mul 12 49 16; Add 485 485 12; Mul 12 73 31; Sub 485 485 12; Add 475 475 485;
  Mul 485 9 475; Mul 16 61 16; Mul 478 49 478; Sub 16 16 478; Mul 478 78 31; Add 16 16 478; Mul 165 165 476;
  Mul 68 68 165; Sub 16 16 68; Mul 68 8 16; Add 485 485 68; Mul 31 86 31; Add 68 214 25; Mul 476 61 68;
  Add 478 477 479; Mul 12 49 478; Add 476 476 12; Add 12 165 476; Mul 481 8 12; Mul 61 61 478; Mul 49 49 68;
  Sub 61 61 49; Add 49 474 61; Mul 68 9 49; Sub 481 481 68; Mul 481 92 481; Sub 31 31 481; Add 485 485 31;
  Add 473 473 485; Mul 98 98 473; Mul 110 110 135; Mul 91 91 110; Mul 475 8 475; Mul 16 9 16; Sub 475 475 16].
Definition casadi_f0_18 : list instruction := [
  Mul 9 9 12; Mul 8 8 49; Add 9 9 8; Mul 92 92 9; Add 475 475 92; Add 91 91 475; Mul 97 97 91; Sub 98 98 97;
  Sub 109 109 98; Mul 98 6 109; Div 97 80 83; Arg 91 1 1; Mul 475 374 143; Mul 92 140 136; Sub 475 475 92;
  Mul 92 123 142; Mul 8 141 144; Mul 49 371 140; Sub 8 8 49; Add 92 92 8; Sub 475 475 92; Add 475 475 7;
  Mul 7 150 177; Mul 92 154 164; Sub 7 7 92; Mul 92 167 182; Mul 8 191 171; Add 92 92 8; Mul 8 176 174;
  Mul 49 159 154; Sub 8 8 49; Add 92 92 8; Sub 7 7 92; Add 7 7 77; Mul 77 195 224; Mul 92 203 213; Sub 77 77 92;
  Mul 92 216 181; Mul 8 232 160; Add 92 92 8; Mul 8 212 222; Mul 49 376 203; Sub 8 8 49; Add 92 92 8;
  Sub 77 77 92; Add 77 77 55; Mul 55 242 270; Mul 92 244 254; Sub 55 55 92; Mul 92 259 186; Mul 8 278 262;
  Add 92 92 8; Mul 8 269 265; Mul 49 378 244; Sub 8 8 49; Add 92 92 8; Sub 55 55 92; Add 55 55 35;
  Mul 35 38 315; Mul 92 289 14; Sub 35 35 92; Mul 92 303 243; Mul 8 319 307; Add 92 92 8; Mul 8 314 310;
  Mul 49 305 289; Sub 8 8 49; Add 92 92 8; Sub 35 35 92; Add 35 35 22; Add 55 55 35; Add 77 77 55; Add 7 7 77;
  Add 475 475 7; Mul 475 116 475; Mul 22 130 142; Mul 92 120 144; Mul 8 141 140; Sub 92 92 8; Sub 22 22 92;
  Mul 136 144 136; Mul 92 374 99; Sub 136 136 92; Add 22 22 136; Sub 22 22 294; Mul 164 174 164;
  Mul 294 150 168; Sub 164 164 294; Mul 294 163 182; Mul 136 188 171; Add 294 294 136; Mul 136 157 174;
  Mul 92 176 154; Sub 136 136 92; Add 294 294 136; Sub 164 164 294; Sub 164 164 169; Mul 213 222 213;
  Mul 169 195 217; Sub 213 213 169; Mul 169 117 181; Mul 294 151 160; Add 169 169 294; Mul 294 206 222;
  Mul 136 212 203; Sub 294 294 136; Add 169 169 294; Sub 213 213 169; Sub 213 213 208; Mul 254 265 254;
  Mul 208 242 260; Sub 254 254 208; Mul 208 268 186; Mul 169 275 262; Add 208 208 169; Mul 169 249 265;
  Mul 294 269 244; Sub 169 169 294; Add 208 208 169; Sub 254 254 208; Sub 254 254 251; Mul 14 310 14;
  Mul 251 38 304; Sub 14 14 251; Mul 251 313 243; Mul 208 288 307; Add 251 251 208; Mul 208 300 310;
  Mul 169 314 289; Sub 208 208 169; Add 251 251 208; Sub 14 14 251; Sub 14 14 18; Add 254 254 14;
  Add 213 213 254; Add 164 164 213; Add 22 22 164; Mul 22 115 22; Sub 475 475 22; Sub 387 387 389;
  Sub 392 392 394; Sub 397 397 399; Sub 402 402 404; Sub 407 407 409; Add 402 402 407; Add 397 397 402;
  Add 392 392 397; Add 387 387 392; Mul 387 367 387].
Definition casadi_f0_19 : list instruction := [
  Sub 412 412 413; Add 415 415 417; Add 419 419 421; Add 423 423 425; Add 427 427 429; Add 423 423 427;
  Add 419 419 423; Add 415 415 419; Add 412 412 415; Mul 412 114 412; Add 387 387 412; Sub 475 475 387;
  Mul 475 475 0; Mul 362 362 352; Add 246 246 292; Mul 324 324 326; Sub 246 246 324; Add 205 205 246;
  Mul 331 331 334; Sub 205 205 331; Add 156 156 205; Mul 339 339 342; Sub 156 156 339; Add 138 138 156;
  Mul 347 347 350; Sub 138 138 347; Mul 347 138 118; Add 255 255 298; Sq 354 354; Add 325 325 354;
  Mul 325 19 325; Add 255 255 325; Add 210 210 255; Sq 46 46; Add 332 332 46; Mul 332 36 332; Add 210 210 332;
  Add 161 161 210; Sq 70 70; Add 340 340 70; Mul 340 11 340; Add 161 161 340; Add 124 124 161; Sq 88 88;
  Add 348 348 88; Mul 348 84 348; Add 124 124 348; Mul 124 124 363; Add 347 347 124; Sub 362 362 347;
  Mul 347 365 370; Mul 122 122 115; Mul 129 129 116; Sub 122 122 129; Mul 129 127 367; Mul 124 119 114;
  Sub 129 129 124; Add 122 122 129; Mul 129 358 118; Mul 124 364 363; Sub 129 129 124; Sub 129 122 129;
  Mul 129 26 129; Mul 364 364 129; Sub 347 347 364; Add 362 362 347; Mul 347 374 141; Sub 148 347 148;
  Sub 132 133 132; Sub 134 126 134; Add 132 132 134; Mul 141 141 374; Sub 147 147 141; Add 132 132 147;
  Sub 148 148 132; Mul 132 150 176; Sub 172 132 172; Sub 197 197 189; Sub 192 192 196; Add 197 197 192;
  Mul 176 176 150; Sub 198 198 176; Add 197 197 198; Sub 172 172 197; Mul 197 195 212; Sub 220 197 220;
  Sub 238 238 153; Sub 233 233 237; Add 238 238 233; Mul 212 212 195; Sub 239 239 212; Add 238 238 239;
  Sub 220 220 238; Mul 238 242 269; Sub 263 238 263; Sub 284 284 276; Sub 279 279 283; Add 284 284 279;
  Mul 269 269 242; Sub 285 285 269; Add 284 284 285; Sub 263 263 284; Mul 284 38 314; Sub 308 284 308;
  Sub 321 321 296; Sub 180 180 320; Add 321 321 180; Mul 314 314 38; Sub 322 322 314; Add 321 321 322;
  Sub 308 308 321; Add 263 263 308; Add 220 220 263; Add 172 172 220; Add 148 148 172; Mul 148 148 116;
  Mul 321 125 130; Mul 322 123 131; Sub 321 321 322; Mul 322 371 374; Mul 180 99 144; Sub 322 322 180;
  Sub 321 321 322; Mul 322 374 120; Mul 180 140 143; Sub 322 322 180; Add 321 321 322; Mul 139 139 119;
  Mul 146 146 127; Add 139 139 146; Mul 179 179 121; Add 139 139 179; Mul 373 131 373; Mul 287 125 287;
  Add 373 373 287; Add 139 139 373; Mul 139 112 139; Sub 321 321 139; Mul 373 150 157; Mul 287 154 177;
  Sub 373 373 287; Mul 287 167 188; Mul 179 191 163; Add 287 287 179; Mul 179 159 150; Mul 121 168 174;
  Sub 179 179 121; Add 287 287 179; Sub 373 373 287].
Definition casadi_f0_20 : list instruction := [
  Mul 175 175 152; Mul 162 162 173; Add 175 175 162; Mul 226 226 187; Add 175 175 226; Mul 62 163 62;
  Mul 380 167 380; Sub 62 62 380; Add 175 175 62; Mul 175 112 175; Sub 373 373 175; Mul 62 195 206;
  Mul 380 203 224; Sub 62 62 380; Mul 380 216 151; Mul 226 232 117; Add 380 380 226; Mul 226 376 195;
  Mul 187 217 222; Sub 226 226 187; Add 380 380 226; Sub 62 62 380; Mul 223 223 200; Mul 211 211 221;
  Add 223 223 211; Mul 290 290 230; Add 223 223 290; Mul 79 117 79; Mul 382 216 382; Sub 79 79 382;
  Add 223 223 79; Mul 223 112 223; Sub 62 62 223; Mul 79 242 249; Mul 382 244 270; Sub 79 79 382;
  Mul 382 259 275; Mul 290 278 268; Add 382 382 290; Mul 290 378 242; Mul 230 260 265; Sub 290 290 230;
  Add 382 382 290; Sub 79 79 382; Mul 266 266 241; Mul 252 252 264; Add 266 266 252; Mul 253 253 202;
  Add 266 266 253; Mul 37 268 37; Mul 384 259 384; Sub 37 37 384; Add 266 266 37; Mul 266 112 266;
  Sub 79 79 266; Mul 37 38 300; Mul 384 289 315; Sub 37 37 384; Mul 384 303 288; Mul 253 319 313;
  Add 384 384 253; Mul 253 305 38; Mul 202 304 310; Sub 253 253 202; Add 384 384 253; Sub 37 37 384;
  Mul 384 311 286; Mul 253 295 309; Add 384 384 253; Mul 282 297 282; Add 384 384 282; Mul 41 313 41;
  Mul 386 303 386; Sub 41 41 386; Add 384 384 41; Mul 384 112 384; Sub 37 37 384; Add 79 79 37; Add 62 62 79;
  Add 373 373 62; Add 321 321 373; Mul 321 321 115; Sub 148 148 321; Mul 321 369 125; Mul 41 131 411;
  Sub 321 321 41; Mul 137 112 137; Add 41 321 137; Mul 386 163 416; Sub 386 182 386; Mul 282 391 167;
  Add 386 386 282; Mul 158 112 158; Sub 282 386 158; Mul 253 117 420; Sub 253 181 253; Mul 202 396 216;
  Add 253 253 202; Mul 207 112 207; Sub 202 253 207; Mul 252 268 424; Sub 252 186 252; Mul 382 401 259;
  Add 252 252 382; Mul 248 112 248; Sub 382 252 248; Mul 290 313 428; Sub 290 243 290; Mul 230 406 303;
  Add 290 290 230; Mul 112 112 293; Sub 293 290 112; Add 382 382 293; Add 202 202 382; Add 282 282 202;
  Add 41 41 282; Mul 41 41 367; Mul 230 411 125; Mul 211 131 369; Mul 380 125 411; Mul 226 142 388;
  Add 226 380 226; Add 211 211 226; Sub 211 230 211; Mul 187 369 131; Mul 388 388 142; Add 230 230 388;
  Add 187 187 230; Sub 380 380 187; Sub 211 211 380; Sub 441 441 435; Sub 436 436 440; Sub 441 441 436;
  Sub 448 448 442; Sub 443 443 447; Sub 448 448 443; Sub 455 455 449; Sub 450 450 454; Sub 455 455 450;
  Sub 462 462 456; Sub 457 457 461; Sub 462 462 457; Add 455 455 462; Add 448 448 455; Add 441 441 448;
  Add 211 211 441; Mul 457 211 114; Add 41 41 457; Sub 148 148 41].
Definition casadi_f0_21 : list instruction := [
  Add 362 362 148; Mul 362 116 362; Mul 357 357 352; Add 64 64 13; Add 327 327 354; Mul 19 19 327; Add 64 64 19;
  Add 29 29 64; Add 335 335 46; Mul 335 36 335; Add 29 29 335; Add 48 48 29; Add 343 343 70; Mul 343 11 343;
  Add 48 48 343; Add 33 33 48; Add 351 351 88; Mul 351 84 351; Add 33 33 351; Mul 33 33 118; Mul 138 138 363;
  Add 33 33 138; Sub 357 357 33; Mul 358 358 129; Mul 365 365 366; Sub 358 358 365; Add 357 357 358;
  Mul 130 130 125; Mul 123 131 123; Sub 130 130 123; Mul 143 143 140; Mul 120 120 374; Sub 143 143 120;
  Sub 130 130 143; Mul 144 144 99; Mul 374 374 371; Sub 144 144 374; Add 130 130 144; Add 130 130 139;
  Mul 174 174 168; Mul 159 150 159; Sub 174 174 159; Mul 159 163 191; Mul 168 188 167; Add 159 159 168;
  Mul 177 177 154; Mul 157 157 150; Sub 177 177 157; Add 159 159 177; Sub 174 174 159; Add 174 174 175;
  Mul 222 222 217; Mul 376 195 376; Sub 222 222 376; Mul 376 117 232; Mul 217 151 216; Add 376 376 217;
  Mul 224 224 203; Mul 206 206 195; Sub 224 224 206; Add 376 376 224; Sub 222 222 376; Add 222 222 223;
  Mul 265 265 260; Mul 378 242 378; Sub 265 265 378; Mul 378 268 278; Mul 260 275 259; Add 378 378 260;
  Mul 270 270 244; Mul 249 249 242; Sub 270 270 249; Add 378 378 270; Sub 265 265 378; Add 265 265 266;
  Mul 310 310 304; Mul 305 38 305; Sub 310 310 305; Mul 305 313 319; Mul 304 288 303; Add 305 305 304;
  Mul 315 315 289; Mul 300 300 38; Sub 315 315 300; Add 305 305 315; Sub 310 310 305; Add 310 310 384;
  Add 265 265 310; Add 222 222 265; Add 174 174 222; Add 130 130 174; Mul 130 130 116; Add 126 126 133;
  Sub 141 141 145; Sub 126 126 141; Sub 149 149 347; Add 126 126 149; Add 194 194 184; Sub 176 176 193;
  Sub 194 194 176; Sub 178 178 132; Add 194 194 178; Add 235 235 228; Sub 212 212 234; Sub 235 235 212;
  Sub 225 225 197; Add 235 235 225; Add 281 281 204; Sub 269 269 280; Sub 281 281 269; Sub 271 271 238;
  Add 281 281 271; Add 245 245 227; Sub 314 314 291; Sub 245 245 314; Sub 316 316 284; Add 245 245 316;
  Add 281 281 245; Add 235 235 281; Add 194 194 235; Add 126 126 194; Mul 126 126 115; Sub 130 130 126;
  Sub 230 230 226; Sub 166 166 438; Sub 437 437 445; Sub 444 444 452; Sub 451 451 459; Add 444 444 451;
  Add 437 437 444; Add 166 166 437; Add 230 230 166; Mul 459 230 367; Mul 411 411 131; Mul 125 125 369;
  Sub 411 411 125; Sub 125 411 137; Mul 369 416 163; Mul 131 167 391; Add 182 182 131; Sub 369 369 182;
  Add 182 369 158; Mul 131 420 117; Mul 452 216 396; Add 181 181 452; Sub 131 131 181; Add 181 131 207;
  Mul 452 424 268; Mul 445 259 401].
Definition casadi_f0_22 : list instruction := [
  Add 186 186 445; Sub 452 452 186; Add 186 452 248; Mul 445 428 313; Mul 438 303 406; Add 243 243 438;
  Sub 445 445 243; Add 243 445 112; Add 186 186 243; Add 181 181 186; Add 182 182 181; Add 125 125 182;
  Mul 125 125 114; Add 459 459 125; Sub 130 130 459; Add 357 357 130; Mul 357 115 357; Sub 362 362 357;
  Sub 321 321 137; Add 386 386 158; Add 253 253 207; Add 252 252 248; Add 290 290 112; Add 252 252 290;
  Add 253 253 252; Add 386 386 253; Add 321 321 386; Mul 321 321 116; Mul 230 230 115; Sub 321 321 230;
  Add 370 370 321; Mul 370 367 370; Mul 211 211 116; Add 411 411 137; Sub 369 369 158; Sub 131 131 207;
  Sub 452 452 248; Sub 445 445 112; Add 452 452 445; Add 131 131 452; Add 369 369 131; Add 411 411 369;
  Mul 411 411 115; Sub 211 211 411; Add 366 366 211; Mul 366 114 366; Add 370 370 366; Sub 362 362 370;
  Mul 362 362 1; Add 475 475 362; Mul 362 156 344; Mul 370 161 390; Add 362 362 370; Mul 370 361 414;
  Sub 362 362 370; Mul 370 345 434; Mul 152 152 170; Mul 173 173 432; Sub 152 152 173; Mul 185 185 116;
  Mul 190 190 115; Add 185 185 190; Sub 152 152 185; Mul 185 346 390; Mul 190 349 344; Sub 185 185 190;
  Sub 185 152 185; Mul 185 336 185; Mul 190 346 185; Sub 370 370 190; Add 362 362 370; Mul 370 282 432;
  Mul 190 441 170; Mul 167 393 167; Mul 416 171 416; Add 188 188 416; Sub 167 167 188; Add 188 167 417;
  Mul 216 398 216; Mul 420 160 420; Add 151 151 420; Sub 216 216 151; Add 151 216 421; Mul 259 403 259;
  Mul 424 262 424; Add 275 275 424; Sub 259 259 275; Add 275 259 425; Mul 424 408 303; Mul 428 307 428;
  Add 288 288 428; Sub 424 424 288; Add 288 424 429; Add 275 275 288; Add 151 151 275; Add 188 188 151;
  Mul 188 188 82; Sub 190 190 188; Add 370 370 190; Mul 190 373 115; Mul 188 172 116; Sub 190 190 188;
  Add 370 370 190; Add 362 362 370; Mul 362 116 362; Mul 370 48 344; Mul 190 156 390; Add 370 370 190;
  Mul 190 356 414; Sub 370 370 190; Mul 190 349 185; Mul 188 345 433; Sub 190 190 188; Add 370 370 190;
  Mul 190 166 432; Mul 188 182 170; Mul 171 171 391; Sub 191 191 171; Mul 393 393 163; Add 191 191 393;
  Sub 393 191 394; Mul 160 160 396; Sub 232 232 160; Mul 398 398 117; Add 232 232 398; Sub 398 232 399;
  Mul 262 262 401; Sub 278 278 262; Mul 403 403 268; Add 278 278 403; Sub 403 278 404; Mul 406 307 406;
  Sub 319 319 406; Mul 408 408 313; Add 319 319 408; Sub 408 319 409; Add 403 403 408; Add 398 398 403;
  Add 393 393 398; Mul 393 393 82; Sub 188 188 393; Add 190 190 188; Mul 188 194 115; Mul 393 174 116;
  Sub 188 188 393; Add 190 190 188; Add 370 370 190; Mul 370 115 370; Sub 190 362 370].
Definition casadi_f0_23 : list instruction := [
  Mul 188 166 115; Mul 393 386 116; Sub 188 188 393; Add 434 434 188; Mul 188 367 434; Mul 393 369 115;
  Mul 406 441 116; Sub 393 393 406; Add 433 433 393; Mul 393 114 433; Add 188 188 393; Sub 190 190 188;
  Mul 190 190 2; Add 475 475 190; Mul 190 360 372; Mul 188 205 395; Mul 393 210 375; Add 188 188 393;
  Sub 190 190 188; Mul 188 337 155; Mul 229 229 116; Mul 231 231 115; Add 229 229 231; Mul 221 221 458;
  Mul 200 200 219; Sub 221 221 200; Add 229 229 221; Mul 221 341 395; Mul 200 338 375; Sub 221 221 200;
  Sub 221 229 221; Mul 221 59 221; Mul 200 338 221; Sub 188 188 200; Add 190 190 188; Mul 188 151 63;
  Mul 200 448 219; Sub 188 188 200; Mul 200 202 458; Sub 188 188 200; Mul 200 220 116; Mul 231 62 115;
  Sub 200 200 231; Add 188 188 200; Add 190 190 188; Mul 190 116 190; Mul 188 355 372; Mul 200 29 395;
  Mul 231 205 375; Add 200 200 231; Sub 188 188 200; Mul 200 341 221; Mul 231 337 128; Sub 200 200 231;
  Add 188 188 200; Mul 200 398 63; Mul 231 181 219; Sub 200 200 231; Mul 231 437 458; Sub 200 200 231;
  Mul 231 222 116; Mul 393 235 115; Sub 231 231 393; Add 200 200 231; Add 188 188 200; Mul 188 115 188;
  Sub 200 190 188; Mul 231 253 116; Mul 393 437 115; Sub 231 231 393; Add 155 155 231; Mul 231 367 155;
  Mul 393 448 116; Mul 406 131 115; Sub 393 393 406; Add 128 128 393; Mul 393 114 128; Add 231 231 393;
  Sub 231 200 231; Mul 231 231 3; Add 475 475 231; Mul 231 246 328; Mul 393 255 377; Add 231 231 393;
  Mul 393 359 381; Add 231 231 393; Mul 393 329 467; Mul 277 277 201; Mul 199 199 218; Sub 277 277 199;
  Mul 241 241 267; Mul 264 264 464; Sub 241 241 264; Add 277 277 241; Mul 241 330 377; Mul 264 333 328;
  Sub 241 241 264; Sub 241 277 241; Mul 241 400 241; Mul 264 330 241; Sub 393 393 264; Add 231 231 393;
  Mul 393 382 464; Mul 264 455 267; Mul 199 275 257; Add 264 264 199; Add 393 393 264; Mul 264 79 201;
  Mul 199 263 218; Mul 406 55 209; Add 199 199 406; Add 264 264 199; Sub 393 393 264; Add 231 231 393;
  Mul 393 116 231; Mul 264 64 328; Mul 199 246 377; Add 264 264 199; Mul 199 353 381; Add 264 264 199;
  Mul 199 333 241; Mul 406 329 465; Sub 199 199 406; Add 264 264 199; Mul 199 444 464; Mul 406 186 267;
  Mul 268 403 257; Add 406 406 268; Add 199 199 406; Mul 406 281 201; Mul 268 265 218; Mul 262 254 209;
  Add 268 268 262; Add 406 406 268; Sub 199 199 406; Add 264 264 199; Mul 199 115 264; Sub 406 393 199;
  Mul 268 444 201; Mul 262 252 218; Mul 401 402 209; Add 262 262 401; Add 268 268 262; Sub 467 467 268;
  Mul 268 367 467; Mul 262 452 201; Mul 401 455 218; Mul 117 423 209; Add 401 401 117].
Definition casadi_f0_24 : list instruction := [
  Add 262 262 401; Sub 465 465 262; Mul 262 114 465; Add 268 268 262; Sub 268 406 268; Mul 268 268 4;
  Add 475 475 268; Mul 268 292 466; Mul 262 298 468; Add 268 268 262; Mul 262 295 469; Add 268 268 262;
  Mul 262 307 318; Mul 273 273 236; Mul 240 240 250; Sub 273 273 240; Mul 286 286 312; Mul 309 309 471;
  Sub 286 286 309; Add 273 273 286; Mul 286 313 468; Mul 309 303 466; Sub 286 286 309; Sub 273 273 286;
  Mul 273 299 273; Mul 286 313 273; Sub 262 262 286; Add 268 268 262; Mul 262 293 471; Mul 286 462 312;
  Mul 309 288 301; Add 286 286 309; Add 262 262 286; Mul 286 37 236; Mul 309 308 250; Mul 240 35 247;
  Add 309 309 240; Add 286 286 309; Sub 262 262 286; Add 268 268 262; Mul 262 116 268; Mul 466 13 466;
  Mul 468 292 468; Add 466 466 468; Mul 469 311 469; Add 466 466 469; Mul 469 303 273; Mul 468 307 470;
  Sub 469 469 468; Add 466 466 469; Mul 469 451 471; Mul 468 243 312; Mul 286 408 301; Add 468 468 286;
  Add 469 469 468; Mul 468 245 236; Mul 286 310 250; Mul 309 14 247; Add 286 286 309; Add 468 468 286;
  Sub 469 469 468; Add 466 466 469; Mul 469 115 466; Sub 468 262 469; Mul 286 451 236; Mul 309 290 250;
  Mul 240 407 247; Add 309 309 240; Add 286 286 309; Sub 318 318 286; Mul 286 367 318; Mul 309 445 236;
  Mul 240 462 250; Mul 401 427 247; Add 240 240 401; Add 309 309 240; Sub 470 470 309; Mul 309 114 470;
  Add 286 286 309; Sub 286 468 286; Mul 286 286 5; Add 475 475 286; Sub 91 91 475; Mul 72 72 165; Mul 67 67 474;
  Sub 72 72 67; Mul 50 50 214; Mul 57 57 477; Sub 50 50 57; Mul 30 17 30; Mul 480 34 480; Sub 30 30 480;
  Mul 25 51 25; Mul 479 58 479; Sub 25 25 479; Add 30 30 25; Add 50 50 30; Mul 476 73 476; Mul 61 78 61;
  Sub 476 476 61; Add 476 50 476; Add 72 72 476; Mul 9 86 9; Sub 9 72 9; Mul 85 85 110; Sub 9 9 85; Sub 91 91 9;
  Mul 9 97 91; Add 98 98 9; Div 9 100 83; Arg 85 1 2; Mul 392 432 392; Mul 415 170 415; Mul 439 82 439;
  Sub 415 415 439; Add 392 392 415; Mul 164 115 164; Mul 7 116 7; Sub 164 164 7; Add 392 392 164; Mul 392 392 0;
  Mul 164 345 116; Sub 164 432 164; Mul 164 336 164; Mul 7 164 96; Mul 415 346 116; Mul 439 349 115;
  Add 415 415 439; Sub 415 415 82; Mul 415 336 415; Mul 439 415 122; Mul 110 345 115; Sub 110 170 110;
  Mul 336 336 110; Mul 110 336 368; Sub 439 439 110; Add 7 7 439; Mul 356 356 115; Mul 361 361 116;
  Sub 356 356 361; Mul 361 346 336; Mul 439 349 164; Sub 361 361 439; Add 356 356 361; Mul 356 356 352;
  Mul 361 156 115; Mul 161 161 116; Sub 361 361 161; Mul 164 345 164].
Definition casadi_f0_25 : list instruction := [
  Mul 346 346 415; Sub 164 164 346; Add 361 361 164; Mul 361 361 363; Sub 356 356 361; Mul 48 48 115;
  Mul 156 156 116; Sub 48 48 156; Mul 349 349 415; Mul 345 345 336; Sub 349 349 345; Add 48 48 349;
  Mul 48 48 118; Sub 356 356 48; Add 7 7 356; Mul 386 432 386; Mul 356 170 441; Sub 167 167 417;
  Sub 216 216 421; Sub 259 259 425; Sub 424 424 429; Add 259 259 424; Add 216 216 259; Add 167 167 216;
  Mul 429 82 167; Sub 356 356 429; Add 386 386 356; Mul 174 115 174; Mul 172 116 172; Sub 174 174 172;
  Add 386 386 174; Mul 386 386 116; Mul 174 432 166; Mul 369 170 369; Add 191 191 394; Add 232 232 399;
  Add 278 278 404; Add 319 319 409; Add 278 278 319; Add 232 232 278; Add 191 191 232; Mul 409 82 191;
  Sub 369 369 409; Add 174 174 369; Mul 194 115 194; Mul 373 116 373; Sub 194 194 373; Add 174 174 194;
  Mul 174 174 115; Sub 386 386 174; Mul 166 115 166; Mul 282 116 282; Sub 166 166 282; Mul 166 166 367;
  Mul 182 115 182; Mul 441 116 441; Sub 182 182 441; Mul 182 182 114; Add 166 166 182; Sub 386 386 166;
  Add 7 7 386; Mul 7 7 1; Add 392 392 7; Mul 434 432 434; Mul 433 170 433; Mul 191 191 115; Mul 167 167 116;
  Sub 191 191 167; Add 185 185 191; Mul 185 82 185; Sub 433 433 185; Add 434 434 433; Sub 370 370 362;
  Add 434 434 370; Mul 434 434 2; Add 392 392 434; Mul 434 432 155; Mul 370 170 128; Mul 362 216 116;
  Mul 433 232 115; Sub 362 362 433; Add 221 221 362; Mul 362 82 221; Sub 370 370 362; Add 434 434 370;
  Sub 188 188 190; Add 434 434 188; Mul 434 434 3; Add 392 392 434; Mul 434 432 467; Mul 188 170 465;
  Mul 190 278 201; Mul 370 259 218; Mul 362 453 209; Add 370 370 362; Add 190 190 370; Sub 241 241 190;
  Mul 190 82 241; Sub 188 188 190; Add 434 434 188; Sub 199 199 393; Add 434 434 199; Mul 434 434 4;
  Add 392 392 434; Mul 434 432 318; Mul 199 170 470; Mul 393 319 236; Mul 188 424 250; Mul 190 460 247;
  Add 188 188 190; Add 393 393 188; Sub 273 273 393; Mul 393 82 273; Sub 199 199 393; Add 434 434 199;
  Sub 469 469 262; Add 434 434 469; Mul 434 434 5; Add 392 392 434; Sub 85 85 392; Add 85 85 72; Mul 72 9 85;
  Sub 98 98 72; Div 72 69 83; Arg 392 1 3; Mul 446 63 446; Mul 419 219 419; Sub 446 446 419; Mul 397 458 397;
  Sub 446 446 397; Mul 77 116 77; Mul 213 115 213; Sub 77 77 213; Add 446 446 77; Mul 446 446 0; Mul 77 337 116;
  Sub 77 77 458; Mul 77 59 77; Mul 213 77 96; Mul 397 338 116; Mul 419 341 115; Add 397 397 419; Sub 397 63 397;
  Mul 397 59 397; Mul 419 397 122; Mul 434 337 115; Sub 434 434 219; Mul 434 59 434; Mul 469 434 368].
Definition casadi_f0_26 : list instruction := [
  Sub 419 419 469; Add 213 213 419; Mul 360 360 116; Mul 355 355 115; Sub 360 360 355; Mul 355 338 434;
  Mul 419 341 77; Sub 355 355 419; Add 360 360 355; Mul 355 360 352; Mul 210 210 116; Mul 419 205 115;
  Sub 210 210 419; Mul 419 337 77; Mul 338 338 397; Sub 419 419 338; Add 210 210 419; Mul 419 210 363;
  Sub 355 355 419; Mul 205 205 116; Mul 29 29 115; Sub 205 205 29; Mul 341 341 397; Mul 337 337 434;
  Sub 341 341 337; Add 205 205 341; Mul 341 205 118; Sub 355 355 341; Add 213 213 355; Mul 216 63 216;
  Mul 355 219 448; Sub 216 216 355; Mul 253 458 253; Sub 216 216 253; Mul 220 116 220; Mul 222 115 222;
  Sub 220 220 222; Add 216 216 220; Mul 216 216 116; Mul 232 63 232; Mul 131 219 131; Sub 232 232 131;
  Mul 131 458 437; Sub 232 232 131; Mul 62 116 62; Mul 235 115 235; Sub 62 62 235; Add 232 232 62;
  Mul 232 232 115; Sub 62 216 232; Mul 202 116 202; Mul 437 115 437; Sub 202 202 437; Mul 437 202 367;
  Mul 448 116 448; Mul 181 115 181; Sub 448 448 181; Mul 181 448 114; Add 437 437 181; Sub 62 62 437;
  Add 213 213 62; Mul 213 213 1; Add 446 446 213; Mul 77 77 183; Mul 434 434 431; Mul 397 397 152;
  Add 434 434 397; Add 77 77 434; Mul 205 205 344; Mul 210 210 390; Mul 360 360 414; Sub 210 210 360;
  Add 205 205 210; Add 77 77 205; Mul 202 202 432; Mul 448 448 170; Mul 151 116 151; Mul 398 115 398;
  Sub 151 151 398; Mul 151 151 82; Sub 448 448 151; Add 202 202 448; Sub 232 232 216; Add 202 202 232;
  Add 77 77 202; Mul 77 77 2; Add 446 446 77; Mul 221 63 221; Mul 128 219 128; Sub 221 221 128; Mul 155 458 155;
  Sub 221 221 155; Add 221 221 200; Mul 221 221 3; Add 446 446 221; Mul 221 63 241; Mul 200 219 465;
  Sub 221 221 200; Mul 200 458 467; Sub 221 221 200; Add 221 221 406; Mul 221 221 4; Add 446 446 221;
  Mul 221 63 273; Mul 406 219 470; Sub 221 221 406; Mul 406 458 318; Sub 221 221 406; Add 221 221 468;
  Mul 221 221 5; Add 446 446 221; Sub 392 392 446; Sub 392 392 50; Mul 50 72 392; Add 98 98 50; Div 50 52 83;
  Arg 446 1 4; Mul 402 464 402; Mul 423 267 423; Mul 221 257 453; Add 423 423 221; Add 402 402 423;
  Mul 254 201 254; Mul 55 218 55; Mul 272 209 272; Add 55 55 272; Add 254 254 55; Sub 402 402 254;
  Mul 402 402 0; Mul 254 329 218; Mul 55 333 209; Sub 254 254 55; Sub 254 464 254; Mul 254 400 254;
  Mul 55 254 96; Mul 272 333 201; Mul 423 330 218; Sub 272 272 423; Sub 272 257 272; Mul 272 400 272;
  Mul 423 272 122; Mul 221 330 209; Mul 468 329 201; Sub 221 221 468; Sub 221 267 221; Mul 400 400 221;
  Mul 221 400 368; Sub 423 423 221; Add 55 55 423].
Definition casadi_f0_27 : list instruction := [
  Mul 423 330 400; Mul 221 333 254; Sub 423 423 221; Mul 221 353 201; Mul 468 359 218; Add 221 221 468;
  Mul 323 323 209; Add 221 221 323; Sub 423 423 221; Mul 221 423 352; Mul 323 329 254; Mul 330 330 272;
  Sub 323 323 330; Mul 330 246 201; Mul 255 255 218; Add 330 330 255; Mul 359 359 209; Add 330 330 359;
  Sub 323 323 330; Mul 330 323 363; Sub 221 221 330; Mul 333 333 272; Mul 329 329 400; Sub 333 333 329;
  Mul 64 64 201; Mul 246 246 218; Add 64 64 246; Mul 353 353 209; Add 64 64 353; Sub 333 333 64; Mul 64 333 118;
  Sub 221 221 64; Add 55 55 221; Mul 221 201 444; Mul 382 218 382; Mul 405 209 405; Add 382 382 405;
  Add 221 221 382; Mul 382 221 367; Mul 186 201 186; Mul 405 218 455; Mul 426 209 426; Add 405 405 426;
  Add 186 186 405; Mul 405 186 114; Add 382 382 405; Mul 252 464 252; Mul 455 267 455; Mul 259 257 259;
  Add 455 455 259; Add 252 252 455; Mul 265 201 265; Mul 263 218 263; Mul 379 209 379; Add 263 263 379;
  Add 265 265 263; Sub 252 252 265; Mul 252 252 116; Mul 444 464 444; Mul 452 267 452; Mul 278 257 278;
  Add 452 452 278; Add 444 444 452; Mul 281 201 281; Mul 79 218 79; Mul 383 209 383; Add 79 79 383;
  Add 281 281 79; Sub 444 444 281; Mul 444 444 115; Sub 281 252 444; Add 382 382 281; Add 55 55 382;
  Mul 55 55 1; Add 402 402 55; Mul 55 254 183; Mul 382 400 431; Mul 79 272 152; Add 382 382 79; Add 55 55 382;
  Mul 382 333 344; Mul 79 323 390; Mul 383 423 414; Sub 79 79 383; Add 382 382 79; Add 55 55 382;
  Mul 403 201 403; Mul 275 218 275; Mul 453 209 453; Add 275 275 453; Add 403 403 275; Mul 275 403 82;
  Mul 453 186 170; Sub 275 275 453; Mul 453 221 432; Sub 275 275 453; Sub 444 444 252; Add 275 275 444;
  Add 55 55 275; Mul 55 55 2; Add 402 402 55; Mul 254 254 215; Mul 272 272 229; Mul 400 400 418;
  Sub 272 272 400; Add 254 254 272; Mul 423 423 372; Mul 323 323 375; Sub 423 423 323; Mul 333 333 395;
  Sub 423 423 333; Add 254 254 423; Mul 221 221 458; Mul 186 186 219; Mul 403 403 63; Sub 186 186 403;
  Add 221 221 186; Add 221 221 281; Add 254 254 221; Mul 254 254 3; Add 402 402 254; Mul 467 464 467;
  Mul 465 267 465; Mul 241 257 241; Add 465 465 241; Add 467 467 465; Mul 264 201 264; Mul 231 218 231;
  Mul 463 209 463; Add 231 231 463; Add 264 264 231; Sub 467 467 264; Mul 467 467 4; Add 402 402 467;
  Mul 467 464 318; Mul 264 267 470; Mul 231 257 273; Add 264 264 231; Add 467 467 264; Mul 264 201 466;
  Mul 231 218 268; Mul 463 209 261; Add 231 231 463; Add 264 264 231; Sub 467 467 264; Mul 467 467 5;
  Add 402 402 467; Sub 446 446 402; Add 446 446 258].
Definition casadi_f0_28 : list instruction := [
  Mul 258 50 446; Add 98 98 258; Div 258 111 83; Arg 402 1 5; Mul 407 471 407; Mul 427 312 427; Mul 467 301 460;
  Add 427 427 467; Add 407 407 427; Mul 14 236 14; Mul 35 250 35; Mul 317 247 317; Add 35 35 317; Add 14 14 35;
  Sub 407 407 14; Mul 0 407 0; Mul 14 307 250; Mul 35 303 247; Sub 14 14 35; Sub 14 471 14; Mul 14 299 14;
  Mul 96 14 96; Mul 35 303 236; Mul 317 313 250; Sub 35 35 317; Sub 35 301 35; Mul 35 299 35; Mul 122 35 122;
  Mul 317 313 247; Mul 427 307 236; Sub 317 317 427; Sub 317 312 317; Mul 299 299 317; Mul 368 299 368;
  Sub 122 122 368; Add 96 96 122; Mul 122 313 299; Mul 368 303 14; Sub 122 122 368; Mul 368 311 236;
  Mul 317 295 250; Add 368 368 317; Mul 297 297 247; Add 368 368 297; Sub 122 122 368; Mul 352 122 352;
  Mul 368 307 14; Mul 313 313 35; Sub 368 368 313; Mul 313 292 236; Mul 298 298 250; Add 313 313 298;
  Mul 295 295 247; Add 313 313 295; Sub 368 368 313; Mul 363 368 363; Sub 352 352 363; Mul 303 303 35;
  Mul 307 307 299; Sub 303 303 307; Mul 13 13 236; Mul 292 292 250; Add 13 13 292; Mul 311 311 247;
  Add 13 13 311; Sub 303 303 13; Mul 118 303 118; Sub 352 352 118; Add 96 96 352; Mul 352 236 451;
  Mul 293 250 293; Mul 410 247 410; Add 293 293 410; Add 352 352 293; Mul 367 352 367; Mul 243 236 243;
  Mul 293 250 462; Mul 430 247 430; Add 293 293 430; Add 243 243 293; Mul 114 243 114; Add 367 367 114;
  Mul 290 471 290; Mul 462 312 462; Mul 424 301 424; Add 462 462 424; Add 290 290 462; Mul 310 236 310;
  Mul 308 250 308; Mul 40 247 40; Add 308 308 40; Add 310 310 308; Sub 290 290 310; Mul 116 290 116;
  Mul 451 471 451; Mul 445 312 445; Mul 319 301 319; Add 445 445 319; Add 451 451 445; Mul 245 236 245;
  Mul 37 250 37; Mul 385 247 385; Add 37 37 385; Add 245 245 37; Sub 451 451 245; Mul 115 451 115;
  Sub 245 116 115; Add 367 367 245; Add 96 96 367; Mul 96 96 1; Add 0 0 96; Mul 183 14 183; Mul 431 299 431;
  Mul 152 35 152; Add 431 431 152; Add 183 183 431; Mul 344 303 344; Mul 390 368 390; Mul 414 122 414;
  Sub 390 390 414; Add 344 344 390; Add 183 183 344; Mul 408 236 408; Mul 288 250 288; Mul 460 247 460;
  Add 288 288 460; Add 408 408 288; Mul 82 408 82; Mul 170 243 170; Sub 82 82 170; Mul 432 352 432;
  Sub 82 82 432; Sub 115 115 116; Add 82 82 115; Add 183 183 82; Mul 183 183 2; Add 0 0 183; Mul 215 14 215;
  Mul 229 35 229; Mul 418 299 418; Sub 229 229 418; Add 215 215 229; Mul 372 122 372; Mul 375 368 375;
  Sub 372 372 375; Mul 395 303 395; Sub 372 372 395; Add 215 215 372; Mul 458 352 458].
Definition casadi_f0_29 : list instruction := [
  Mul 219 243 219; Mul 63 408 63; Sub 219 219 63; Add 458 458 219; Add 458 458 245; Add 215 215 458;
  Mul 215 215 3; Add 0 0 215; Mul 14 14 274; Mul 299 299 422; Mul 35 35 277; Add 299 299 35; Add 14 14 299;
  Mul 303 303 328; Mul 368 368 377; Mul 122 122 381; Add 368 368 122; Add 303 303 368; Add 14 14 303;
  Mul 352 352 464; Mul 243 243 267; Mul 408 408 257; Add 243 243 408; Add 352 352 243; Mul 451 451 201;
  Mul 290 290 218; Mul 407 407 209; Add 290 290 407; Add 451 451 290; Add 352 352 451; Sub 14 14 352;
  Mul 14 14 4; Add 0 0 14; Mul 471 471 318; Mul 312 312 470; Mul 301 301 273; Add 312 312 301; Add 471 471 312;
  Mul 236 236 466; Mul 250 250 268; Mul 247 247 261; Add 250 250 247; Add 236 236 250; Sub 471 471 236;
  Mul 471 471 5; Add 0 0 471; Sub 402 402 0; Add 402 402 484; Mul 484 258 402; Add 98 98 484; Mul 484 111 6;
  Mul 106 17 106; Mul 102 34 102; Sub 106 106 102; Mul 104 51 104; Mul 58 58 66; Sub 104 104 58;
  Add 106 106 104; Mul 105 73 105; Mul 113 78 113; Sub 105 105 113; Add 105 106 105; Mul 45 86 45;
  Sub 45 105 45; Mul 113 45 97; Add 484 484 113; Mul 113 105 9; Add 484 484 113; Mul 113 106 72;
  Add 484 484 113; Mul 113 107 50; Sub 484 484 113; Lit 113 56493592345755437 20; Mul 104 113 258;
  Add 484 484 104; Mul 104 484 6; Sub 111 111 104; Mul 104 80 6; Lit 58 73415599999999996 19; Lit 66 1494858 8;
  Lit 102 71027000000000004 20; Add 43 43 21; Add 102 102 43; Add 60 60 54; Mul 36 36 60; Add 102 102 36;
  Add 66 66 102; Add 81 81 76; Mul 11 11 81; Add 66 66 11; Add 58 58 66; Add 90 90 10; Mul 84 84 90;
  Add 58 58 84; Sq 71 71; Sq 56 56; Add 71 71 56; Mul 26 26 71; Add 58 58 26; Mul 26 58 97; Add 104 104 26;
  Mul 89 89 32; Mul 87 87 47; Add 89 89 87; Sub 89 89 66; Mul 93 86 93; Sub 93 89 93; Mul 66 93 9;
  Sub 104 104 66; Sq 75 75; Sq 74 74; Add 75 75 74; Mul 59 59 75; Add 102 102 59; Mul 95 73 95; Mul 42 78 42;
  Sub 95 95 42; Add 95 102 95; Mul 28 86 28; Sub 28 95 28; Mul 42 28 72; Add 104 104 42; Mul 34 34 65;
  Mul 17 17 20; Sub 34 34 17; Mul 51 51 101; Add 34 34 51; Mul 73 73 94; Mul 78 78 103; Add 73 73 78;
  Add 73 34 73; Mul 86 86 39; Sub 86 73 86; Mul 39 86 50; Add 104 104 39; Mul 39 45 258; Add 104 104 39;
  Mul 39 104 6; Sub 80 80 39; Sq 39 80; Mul 78 104 97; Sub 58 58 78; Sq 78 58; Add 39 39 78; Mul 78 104 9;
  Add 78 93 78; Sq 103 78; Add 39 39 103; Mul 103 104 72].
Definition casadi_f0_30 : list instruction := [
  Sub 103 28 103; Sq 94 103; Add 39 39 94; Mul 94 104 50; Sub 94 86 94; Sq 51 94; Add 39 39 51; Mul 51 104 258;
  Sub 51 45 51; Sq 101 51; Add 39 39 101; Sqrt 39 39; Div 80 80 39; Mul 101 111 80; Mul 17 484 97; Sub 45 45 17;
  Div 58 58 39; Mul 17 45 58; Add 101 101 17; Mul 17 484 9; Sub 17 17 105; Div 78 78 39; Mul 20 17 78;
  Add 101 101 20; Mul 20 484 72; Sub 20 106 20; Div 103 103 39; Mul 65 20 103; Add 101 101 65; Mul 65 484 50;
  Add 65 107 65; Div 94 94 39; Mul 42 65 94; Sub 101 101 42; Mul 42 484 258; Sub 113 113 42; Div 51 51 39;
  Mul 42 113 51; Add 101 101 42; Mul 42 101 80; Sub 111 111 42; Mul 42 101 58; Sub 45 45 42; Mul 42 93 97;
  Mul 59 100 6; Sub 42 42 59; Mul 59 89 9; Add 42 42 59; Mul 59 95 72; Sub 42 42 59; Mul 59 73 50; Sub 42 42 59;
  Mul 59 105 258; Sub 42 42 59; Mul 59 42 97; Sub 93 93 59; Mul 59 93 58; Mul 75 42 6; Add 100 100 75;
  Mul 75 100 80; Sub 59 59 75; Mul 75 42 9; Sub 75 75 89; Mul 89 75 78; Add 59 59 89; Mul 89 42 72;
  Add 89 95 89; Mul 74 89 103; Sub 59 59 74; Mul 74 42 50; Add 74 73 74; Mul 66 74 94; Sub 59 59 66;
  Mul 66 42 258; Add 105 105 66; Mul 66 105 51; Sub 59 59 66; Mul 66 59 58; Sub 93 93 66; Mul 66 59 80;
  Add 100 100 66; Sq 66 100; Sq 87 93; Add 66 66 87; Mul 87 59 78; Sub 75 75 87; Sq 87 75; Add 66 66 87;
  Mul 87 59 103; Add 89 89 87; Sq 87 89; Add 66 66 87; Mul 87 59 94; Add 74 74 87; Sq 87 74; Add 66 66 87;
  Mul 87 59 51; Add 105 105 87; Sq 87 105; Add 66 66 87; Sqrt 66 66; Div 93 93 66; Mul 87 45 93; Div 100 100 66;
  Mul 47 111 100; Sub 87 87 47; Mul 47 101 78; Sub 17 17 47; Div 75 75 66; Mul 47 17 75; Add 87 87 47;
  Mul 47 101 103; Sub 20 20 47; Div 89 89 66; Mul 47 20 89; Sub 87 87 47; Mul 47 101 94; Add 65 65 47;
  Div 74 74 66; Mul 47 65 74; Add 87 87 47; Mul 47 101 51; Sub 113 113 47; Div 105 105 66; Mul 47 113 105;
  Sub 87 87 47; Mul 47 87 100; Add 111 111 47; Mul 47 69 6; Mul 32 28 97; Add 47 47 32; Mul 32 95 9;
  Add 47 47 32; Mul 32 102 72; Add 47 47 32; Mul 32 34 50; Add 47 47 32; Mul 32 106 258; Add 47 47 32;
  Mul 32 47 6; Sub 69 69 32; Mul 32 69 80; Mul 26 47 97; Sub 28 28 26; Mul 26 28 58; Add 32 32 26; Mul 26 47 9;
  Sub 26 26 95; Mul 95 26 78].
Definition casadi_f0_31 : list instruction := [
  Add 32 32 95; Mul 95 47 72; Sub 102 102 95; Mul 95 102 103; Add 32 32 95; Mul 95 47 50; Sub 95 34 95;
  Mul 71 95 94; Add 32 32 71; Mul 71 47 258; Sub 106 106 71; Mul 71 106 51; Add 32 32 71; Mul 71 32 80;
  Sub 69 69 71; Mul 71 32 58; Sub 28 28 71; Mul 71 28 93; Mul 56 69 100; Sub 71 71 56; Mul 56 32 78;
  Sub 26 26 56; Mul 56 26 75; Add 71 71 56; Mul 56 32 103; Sub 102 102 56; Mul 56 102 89; Sub 71 71 56;
  Mul 56 32 94; Sub 95 95 56; Mul 56 95 74; Sub 71 71 56; Mul 56 32 51; Sub 106 106 56; Mul 56 106 105;
  Sub 71 71 56; Mul 56 71 100; Add 69 69 56; Sq 56 69; Mul 84 71 93; Sub 28 28 84; Sq 84 28; Add 56 56 84;
  Mul 84 71 75; Sub 26 26 84; Sq 84 26; Add 56 56 84; Mul 84 71 89; Add 102 102 84; Sq 84 102; Add 56 56 84;
  Mul 84 71 74; Add 95 95 84; Sq 84 95; Add 56 56 84; Mul 84 71 105; Add 106 106 84; Sq 84 106; Add 56 56 84;
  Sqrt 56 56; Div 69 69 56; Mul 84 111 69; Mul 90 87 93; Sub 45 45 90; Div 28 28 56; Mul 90 45 28; Add 84 84 90;
  Mul 90 87 75; Sub 17 17 90; Div 26 26 56; Mul 90 17 26; Add 84 84 90; Mul 90 87 89; Add 20 20 90;
  Div 102 102 56; Mul 90 20 102; Add 84 84 90; Mul 90 87 74; Sub 90 90 65; Div 95 95 56; Mul 65 90 95;
  Add 84 84 65; Mul 65 87 105; Add 113 113 65; Div 106 106 56; Mul 65 113 106; Add 84 84 65; Mul 65 84 69;
  Sub 111 111 65; Mul 65 52 6; Mul 10 86 97; Add 65 65 10; Mul 10 73 9; Add 65 65 10; Mul 10 34 72;
  Add 65 65 10; Mul 10 53 50; Sub 65 65 10; Mul 10 107 258; Sub 65 65 10; Mul 6 65 6; Sub 52 52 6; Mul 6 52 80;
  Mul 97 65 97; Sub 86 86 97; Mul 97 86 58; Add 6 6 97; Mul 9 65 9; Sub 9 9 73; Mul 73 9 78; Add 6 6 73;
  Mul 72 65 72; Sub 34 34 72; Mul 72 34 103; Add 6 6 72; Mul 50 65 50; Add 53 53 50; Mul 50 53 94; Sub 6 6 50;
  Mul 258 65 258; Add 107 107 258; Mul 258 107 51; Sub 6 6 258; Mul 258 6 80; Sub 52 52 258; Mul 258 6 58;
  Sub 86 86 258; Mul 258 86 93; Mul 50 52 100; Sub 258 258 50; Mul 50 6 78; Sub 9 9 50; Mul 50 9 75;
  Add 258 258 50; Mul 50 6 103; Sub 34 34 50; Mul 50 34 89; Sub 258 258 50; Mul 50 6 94; Add 53 53 50;
  Mul 50 53 74; Add 258 258 50; Mul 50 6 51; Add 107 107 50; Mul 50 107 105; Add 258 258 50; Mul 50 258 100;
  Add 52 52 50; Mul 50 52 69].
Definition casadi_f0_32 : list instruction := [
  Mul 72 258 93; Sub 86 86 72; Mul 72 86 28; Add 50 50 72; Mul 72 258 75; Sub 9 9 72; Mul 72 9 26; Add 50 50 72;
  Mul 72 258 89; Add 34 34 72; Mul 72 34 102; Add 50 50 72; Mul 72 258 74; Sub 72 72 53; Mul 53 72 95;
  Add 50 50 53; Mul 53 258 105; Sub 53 53 107; Mul 107 53 106; Add 50 50 107; Mul 107 50 69; Sub 52 52 107;
  Sq 107 52; Mul 73 50 28; Sub 86 86 73; Sq 73 86; Add 107 107 73; Mul 73 50 26; Sub 9 9 73; Sq 73 9;
  Add 107 107 73; Mul 73 50 102; Sub 34 34 73; Sq 73 34; Add 107 107 73; Mul 73 50 95; Sub 72 72 73; Sq 73 72;
  Add 107 107 73; Mul 73 50 106; Sub 53 53 73; Sq 73 53; Add 107 107 73; Sqrt 107 107; Div 52 52 107;
  Mul 73 111 52; Mul 97 84 28; Sub 45 45 97; Div 86 86 107; Mul 97 45 86; Add 73 73 97; Mul 97 84 26;
  Sub 17 17 97; Div 9 9 107; Mul 97 17 9; Add 73 73 97; Mul 97 84 102; Sub 20 20 97; Div 34 34 107;
  Mul 97 20 34; Add 73 73 97; Mul 97 84 95; Sub 90 90 97; Div 72 72 107; Mul 97 90 72; Add 73 73 97;
  Mul 97 84 106; Sub 113 113 97; Div 53 53 107; Mul 97 113 53; Add 73 73 97; Mul 97 73 52; Sub 111 111 97;
  Sq 97 111; Mul 10 73 86; Sub 45 45 10; Sq 10 45; Add 97 97 10; Mul 10 73 9; Sub 17 17 10; Sq 10 17;
  Add 97 97 10; Mul 10 73 34; Sub 20 20 10; Sq 10 20; Add 97 97 10; Mul 10 73 72; Sub 90 90 10; Sq 10 90;
  Add 97 97 10; Mul 10 73 53; Sub 113 113 10; Sq 10 113; Add 97 97 10; Sqrt 97 97; Div 111 111 97;
  Mul 111 111 109; Div 45 45 97; Mul 45 45 91; Add 111 111 45; Div 17 17 97; Mul 17 17 85; Add 111 111 17;
  Div 20 20 97; Mul 20 20 392; Add 111 111 20; Div 90 90 97; Mul 90 90 446; Add 111 111 90; Div 113 113 97;
  Mul 113 113 402; Add 111 111 113; Div 111 111 97; Mul 484 484 111; Sub 98 98 484; Mul 52 52 109; Mul 86 86 91;
  Add 52 52 86; Mul 9 9 85; Add 52 52 9; Mul 34 34 392; Add 52 52 34; Mul 72 72 446; Add 52 52 72;
  Mul 53 53 402; Add 52 52 53; Mul 73 73 111; Sub 52 52 73; Div 52 52 107; Mul 65 65 52; Sub 98 98 65;
  Mul 69 69 109; Mul 28 28 91; Add 69 69 28; Mul 26 26 85; Add 69 69 26; Mul 102 102 392; Add 69 69 102;
  Mul 95 95 446; Add 69 69 95; Mul 106 106 402; Add 69 69 106; Mul 84 84 111; Sub 69 69 84; Mul 50 50 52;
  Sub 69 69 50; Div 69 69 56; Mul 47 47 69; Sub 98 98 47].
Definition casadi_f0_33 : list instruction := [
  Mul 93 93 91; Mul 100 100 109; Sub 93 93 100; Mul 75 75 85; Add 93 93 75; Mul 89 89 392; Sub 93 93 89;
  Mul 74 74 446; Sub 93 93 74; Mul 105 105 402; Sub 93 93 105; Mul 87 87 111; Sub 93 93 87; Mul 258 258 52;
  Sub 93 93 258; Mul 71 71 69; Sub 93 93 71; Div 93 93 66; Mul 42 42 93; Sub 98 98 42; Mul 80 80 109;
  Mul 58 58 91; Add 80 80 58; Mul 78 78 85; Add 80 80 78; Mul 103 103 392; Add 80 80 103; Mul 94 94 446;
  Add 80 80 94; Mul 51 51 402; Add 80 80 51; Mul 101 101 111; Sub 80 80 101; Mul 6 6 52; Sub 80 80 6;
  Mul 32 32 69; Sub 80 80 32; Mul 59 59 93; Sub 80 80 59; Div 80 80 39; Mul 104 104 80; Sub 98 98 104;
  Div 98 98 83; Out 0 6 98; Out 0 7 80; Out 0 8 93; Out 0 9 69; Out 0 10 52; Out 0 11 111].
Definition casadi_f0 : casadi_function := {| f_locals := casadi_f0_locals; f_code :=
  casadi_f0_1 ++ casadi_f0_2 ++ casadi_f0_3 ++ casadi_f0_4 ++ casadi_f0_5 ++ casadi_f0_6 ++ casadi_f0_7 ++
  casadi_f0_8 ++ casadi_f0_9 ++ casadi_f0_10 ++ casadi_f0_11 ++ casadi_f0_12 ++ casadi_f0_13 ++ casadi_f0_14 ++
  casadi_f0_15 ++ casadi_f0_16 ++ casadi_f0_17 ++ casadi_f0_18 ++ casadi_f0_19 ++ casadi_f0_20 ++
  casadi_f0_21 ++ casadi_f0_22 ++ casadi_f0_23 ++ casadi_f0_24 ++ casadi_f0_25 ++ casadi_f0_26 ++
  casadi_f0_27 ++ casadi_f0_28 ++ casadi_f0_29 ++ casadi_f0_30 ++ casadi_f0_31 ++ casadi_f0_32 ++
  casadi_f0_33 |}.
Definition willow_mpc_expl_ode_fun : casadi_function * casadi_interface := (casadi_f0, {|
  f_name_in := ["i0"; "i1"; "i2"]; f_name_out := ["o0"]; f_sparsity_in := [casadi_s0; casadi_s1; casadi_s2]; f_sparsity_out := [casadi_s0];
  f_n_in := 3; f_n_out := 1; f_work := (3, 1, 0, 0)%nat |}).
End MpcOde.
Export MpcOde.

(** ** The adjoint of the equations of motion of the MPC model

    willow_mpc_expl_vde_adj.c, generated by CasADi: for a state, a seed and
    torques, the seed against the derivatives of the equations of motion. *)

Module MpcAdjoint.
#[local] Open Scope string_scope.
#[local] Open Scope list_scope.

Definition casadi_s0 : list Z := [12; 1; 0; 12; 0; 1; 2; 3; 4; 5; 6; 7; 8; 9; 10; 11].
Definition casadi_s1 : list Z := [6; 1; 0; 6; 0; 1; 2; 3; 4; 5].
Definition casadi_s2 : list Z := [0; 0; 0].
Definition casadi_s3 : list Z := [18; 1; 0; 18; 0; 1; 2; 3; 4; 5; 6; 7; 8; 9; 10; 11; 12; 13; 14; 15; 16; 17].

Definition casadi_f0_locals : N := 1318.
Definition casadi_f0_1 : list instruction := [
  Arg 0 0 0; Cos 1 0; Lit 2 14324999999999999 17; Lit 3 (-28499999999999998) 17; Arg 4 0 1; Sin 5 4; Mul 6 3 5;
  Sub 6 2 6; Lit 7 24818000000000001 17; Cos 4 4; Arg 8 0 2; Sin 9 8; Mul 10 4 9; Cos 8 8; Mul 11 5 8;
  Sub 10 10 11; Mul 11 7 10; Lit 12 528 4; Mul 13 5 9; Mul 14 4 8; Add 13 13 14; Mul 14 12 13; Add 11 11 14;
  Add 11 6 11; Lit 14 62758999999999995 18; Arg 15 0 3; Cos 16 15; Mul 17 10 16; Sin 15 15; Mul 18 13 15;
  Sub 17 17 18; Mul 18 14 17; Lit 19 41000000000000002 18; Mul 20 10 15; Mul 21 13 16; Add 20 20 21;
  Mul 21 19 20; Add 18 18 21; Add 18 11 18; Lit 21 18848000000000001 17; Arg 22 0 4; Cos 23 22; Mul 24 17 23;
  Mul 25 21 24; Lit 26 (-78693) 9; Sin 22 22; Mul 27 17 22; Mul 28 26 27; Lit 29 (-34077999999999997) 18;
  Mul 30 29 20; Add 28 28 30; Add 25 25 28; Add 25 18 25; Sin 0 0; Mul 28 0 4; Mul 30 28 8; Mul 31 0 5;
  Mul 32 31 9; Add 30 30 32; Mul 32 30 16; Mul 33 31 8; Mul 34 28 9; Sub 33 33 34; Mul 34 33 15; Sub 32 32 34;
  Mul 34 32 23; Mul 35 1 22; Sub 34 34 35; Mul 35 25 34; Mul 36 3 28; Lit 37 (-26250000000000002) 19;
  Mul 38 37 1; Add 36 36 38; Mul 38 7 30; Mul 39 12 33; Add 38 38 39; Add 38 36 38; Mul 39 14 32;
  Lit 40 26250000000000002 19; Mul 41 40 1; Mul 42 30 15; Mul 43 33 16; Add 42 42 43; Mul 43 19 42;
  Add 41 41 43; Add 39 39 41; Add 39 38 39; Mul 41 21 34; Mul 43 32 22; Mul 44 1 23; Add 43 43 44; Mul 44 26 43;
  Mul 45 29 42; Add 44 44 45; Add 41 41 44; Add 41 39 41; Mul 44 41 24; Sub 35 35 44; Lit 44 80521113 8;
  Lit 45 5 1; Arg 46 0 6; Mul 47 4 46; Mul 48 9 47; Mul 49 5 46; Mul 50 8 49; Sub 48 48 50; Mul 50 16 48;
  Mul 51 9 49; Mul 52 8 47; Add 51 51 52; Mul 52 15 51; Sub 50 50 52; Mul 52 23 50; Arg 53 0 9; Arg 54 0 7;
  Arg 55 0 8; Sub 56 54 55; Add 57 53 56; Mul 58 22 57; Sub 52 52 58; Arg 58 0 11; Sub 59 52 58; Mul 60 34 59;
  Arg 61 0 5; Cos 62 61; Mul 63 43 62; Sin 61 61; Mul 64 42 61; Sub 63 63 64; Mul 64 22 50; Mul 65 23 57;
  Add 64 64 65; Mul 65 62 64; Mul 66 15 48; Mul 67 16 51; Add 66 66 67; Arg 67 0 10; Sub 68 66 67; Mul 69 61 68;
  Sub 65 65 69; Mul 69 63 65; Mul 70 43 61; Mul 71 42 62; Add 70 70 71; Mul 71 61 64; Mul 72 62 68;
  Add 71 71 72; Mul 72 70 71; Add 69 69 72].
Definition casadi_f0_2 : list instruction := [
  Add 60 60 69; Mul 69 45 60; Mul 72 44 69; Lit 73 (-94756709999999994) 18; Mul 74 73 34;
  Lit 75 96069999999999993 21; Mul 76 75 63; Lit 77 (-19297299999999999) 19; Mul 78 77 70; Add 76 76 78;
  Add 74 74 76; Add 74 41 74; Mul 76 72 74; Mul 78 24 59; Mul 79 27 62; Mul 80 20 61; Sub 79 79 80;
  Mul 80 79 65; Mul 81 27 61; Mul 82 20 62; Add 81 81 82; Mul 82 81 71; Add 80 80 82; Add 78 78 80;
  Mul 80 45 78; Mul 82 44 80; Mul 83 73 24; Mul 84 75 79; Mul 85 77 81; Add 84 84 85; Add 83 83 84;
  Add 83 25 83; Mul 84 82 83; Add 85 76 84; Mul 86 74 72; Mul 87 83 82; Add 88 86 87; Sub 89 85 88;
  Mul 90 35 89; Mul 91 1 4; Mul 92 3 91; Mul 93 37 0; Sub 92 92 93; Mul 93 91 8; Mul 94 1 5; Mul 95 94 9;
  Add 93 93 95; Mul 95 7 93; Mul 96 94 8; Mul 97 91 9; Sub 96 96 97; Mul 97 12 96; Add 95 95 97; Add 95 92 95;
  Mul 97 93 16; Mul 98 96 15; Sub 97 97 98; Mul 98 14 97; Mul 99 93 15; Mul 100 96 16; Add 99 99 100;
  Mul 100 19 99; Mul 101 40 0; Sub 100 100 101; Add 98 98 100; Add 98 95 98; Mul 100 97 23; Mul 101 0 22;
  Add 100 100 101; Mul 101 21 100; Mul 102 97 22; Mul 103 0 23; Sub 102 102 103; Mul 103 26 102; Mul 104 29 99;
  Add 103 103 104; Add 101 101 103; Add 101 98 101; Mul 103 101 24; Mul 104 25 100; Sub 103 103 104;
  Mul 104 73 100; Mul 105 102 62; Mul 106 99 61; Sub 105 105 106; Mul 106 75 105; Mul 107 102 61; Mul 108 99 62;
  Add 107 107 108; Mul 108 77 107; Add 106 106 108; Add 104 104 106; Add 104 101 104; Mul 106 72 104;
  Mul 108 12 56; Mul 109 37 47; Mul 110 8 109; Mul 111 3 54; Mul 112 37 49; Add 111 111 112; Mul 112 9 111;
  Add 110 110 112; Sub 108 108 110; Mul 112 16 108; Mul 113 9 109; Mul 114 8 111; Sub 113 113 114; Mul 114 7 56;
  Sub 114 113 114; Mul 115 15 114; Sub 112 112 115; Mul 115 40 66; Mul 116 19 57; Sub 115 115 116;
  Sub 115 112 115; Mul 116 23 115; Mul 117 3 47; Mul 118 12 48; Mul 119 7 51; Sub 118 118 119; Sub 118 117 118;
  Mul 119 19 50; Mul 120 14 66; Sub 119 119 120; Sub 119 118 119; Mul 120 22 119; Sub 116 116 120;
  Mul 120 26 68; Mul 121 29 64; Sub 120 120 121; Sub 120 116 120; Mul 121 24 120; Mul 122 22 115;
  Mul 123 23 119; Add 122 122 123; Mul 123 29 52; Mul 124 21 68; Sub 123 123 124; Sub 123 122 123;
  Mul 124 62 123; Mul 125 15 108; Mul 126 16 114; Add 125 125 126; Mul 126 14 57; Mul 127 40 50;
  Sub 126 126 127; Sub 126 125 126; Mul 127 21 64; Mul 128 26 52].
Definition casadi_f0_3 : list instruction := [
  Sub 127 127 128; Sub 127 126 127; Mul 128 61 127; Sub 124 124 128; Mul 128 79 124; Mul 129 61 123;
  Mul 130 62 127; Add 129 129 130; Mul 130 81 129; Add 128 128 130; Add 121 121 128; Mul 128 101 60;
  Mul 130 100 59; Mul 131 105 65; Mul 132 107 71; Add 131 131 132; Add 130 130 131; Mul 131 41 130;
  Sub 128 128 131; Add 121 121 128; Mul 128 45 121; Mul 128 44 128; Mul 131 45 130; Mul 132 44 131;
  Mul 133 74 132; Add 133 128 133; Sub 106 106 133; Mul 133 104 60; Mul 134 74 130; Sub 133 133 134;
  Sub 133 121 133; Mul 133 44 133; Mul 134 45 133; Sub 135 106 134; Mul 136 103 135; Mul 137 41 100;
  Mul 138 101 34; Sub 137 137 138; Mul 138 34 120; Mul 139 63 124; Mul 140 70 129; Add 139 139 140;
  Add 138 138 139; Mul 139 25 130; Mul 140 101 78; Sub 139 139 140; Add 138 138 139; Mul 139 45 138;
  Mul 139 44 139; Mul 140 83 132; Sub 140 139 140; Mul 141 82 104; Add 140 140 141; Mul 141 83 130;
  Mul 142 104 78; Sub 141 141 142; Sub 141 138 141; Mul 141 44 141; Mul 142 45 141; Add 143 140 142;
  Mul 144 137 143; Add 136 136 144; Add 90 90 136; Mul 136 139 74; Mul 144 128 83; Add 145 136 144;
  Mul 146 74 139; Mul 147 83 128; Add 148 146 147; Add 149 145 148; Lit 150 (-74054000000000004) 20;
  Mul 151 150 34; Lit 152 61999999999999999 23; Mul 153 152 63; Lit 154 (-69999999999999997) 23; Mul 155 154 70;
  Add 153 153 155; Add 151 151 153; Mul 153 151 100; Mul 155 152 34; Lit 156 (-63539999999999951) 21;
  Mul 157 156 63; Lit 158 82379999999999994 21; Mul 159 158 70; Add 157 157 159; Add 155 155 157;
  Mul 157 155 105; Add 153 153 157; Lit 157 (-34999999999999998) 23; Mul 159 157 79;
  Lit 160 41189999999999997 21; Mul 161 160 24; Sub 159 159 161; Add 153 153 159; Mul 159 44 104;
  Mul 161 159 74; Sub 161 153 161; Mul 162 161 80; Mul 163 150 24; Mul 164 152 79; Mul 165 154 81;
  Add 164 164 165; Add 163 163 164; Mul 164 163 100; Mul 165 152 24; Mul 166 156 79; Mul 167 158 81;
  Add 166 166 167; Add 165 165 166; Mul 166 165 105; Add 164 164 166; Mul 166 157 63; Mul 167 160 34;
  Sub 166 166 167; Sub 164 164 166; Mul 166 159 83; Sub 166 164 166; Mul 167 166 69; Sub 168 162 167;
  Sub 149 149 168; Mul 168 69 166; Mul 169 80 161; Sub 170 168 169; Add 149 149 170; Mul 170 100 149;
  Lit 171 (-80407999999999999) 20; Mul 172 151 34; Mul 173 155 63; Add 172 172 173; Sub 173 171 172;
  Mul 174 163 24; Mul 175 165 79; Add 174 174 175; Sub 173 173 174; Lit 175 130247 8; Add 173 173 175;
  Sq 176 74; Sq 177 83; Add 178 176 177; Mul 178 44 178; Add 178 173 178; Mul 179 80 178; Mul 180 131 166;
  Sub 179 179 180; Mul 180 100 120; Mul 181 105 124; Mul 182 107 129; Add 181 181 182; Add 180 180 181].
Definition casadi_f0_4 : list instruction := [
  Mul 181 41 78; Mul 182 25 60; Sub 181 181 182; Add 180 180 181; Mul 181 45 180; Mul 181 44 181;
  Mul 182 74 181; Mul 183 139 104; Add 182 182 183; Add 172 172 175; Sq 183 104; Add 177 183 177;
  Mul 177 44 177; Add 177 172 177; Mul 184 177 80; Mul 185 163 34; Mul 186 165 63; Add 185 185 186;
  Mul 186 157 105; Mul 187 160 100; Sub 186 186 187; Add 185 185 186; Mul 186 44 74; Mul 187 186 83;
  Sub 187 185 187; Mul 188 187 69; Sub 184 184 188; Add 182 182 184; Sub 179 179 182; Mul 182 164 130;
  Mul 184 185 60; Add 182 182 184; Add 174 174 175; Mul 184 174 78; Add 182 182 184; Mul 184 104 141;
  Mul 188 74 78; Mul 189 83 60; Sub 188 188 189; Sub 188 180 188; Mul 188 44 188; Mul 189 74 188;
  Sub 184 184 189; Add 182 182 184; Mul 182 45 182; Sub 179 179 182; Mul 184 34 179; Mul 189 131 161;
  Mul 190 69 178; Sub 189 189 190; Mul 190 83 181; Mul 191 128 104; Add 190 190 191; Mul 191 187 80;
  Add 183 183 176; Mul 183 44 183; Add 183 174 183; Mul 176 183 69; Sub 191 191 176; Add 190 190 191;
  Sub 189 189 190; Mul 190 153 130; Mul 191 172 60; Add 190 190 191; Mul 191 185 78; Add 190 190 191;
  Mul 191 83 188; Mul 176 104 133; Sub 191 191 176; Add 190 190 191; Mul 190 45 190; Add 189 189 190;
  Mul 191 24 189; Add 184 184 191; Add 170 170 184; Sub 90 90 170; Lit 170 (-79500600643088921) 22;
  Mul 184 170 62; Lit 191 1475867732684376 19; Mul 176 191 61; Add 184 184 176; Lit 176 (-77356633259099993) 21;
  Mul 192 176 62; Lit 193 (-15538400738948999) 19; Mul 194 193 61; Sub 192 192 194; Mul 194 21 192;
  Sub 184 184 194; Mul 194 23 184; Lit 195 (-56493592345755437) 20; Mul 196 26 192; Mul 197 193 62;
  Mul 198 176 61; Add 197 197 198; Mul 198 29 197; Sub 196 196 198; Add 195 195 196; Mul 196 22 195;
  Sub 194 194 196; Mul 196 22 197; Mul 198 19 196; Mul 199 14 192; Sub 198 198 199; Add 194 194 198;
  Mul 198 16 196; Mul 199 15 192; Add 198 198 199; Mul 199 12 198; Mul 200 16 192; Mul 201 15 196;
  Sub 200 200 201; Mul 201 7 200; Sub 199 199 201; Add 199 194 199; Mul 201 9 198; Mul 202 8 200;
  Add 201 201 202; Mul 202 3 201; Sub 202 199 202; Lit 203 (-38199999999999998) 22;
  Lit 204 (-23999999999999999) 22; Lit 205 19000000000000001 23; Mul 206 152 62; Mul 207 154 61;
  Add 206 206 207; Mul 207 157 61; Sub 206 206 207; Add 206 205 206; Lit 207 (-23043160247559692) 18;
  Lit 208 (-49119999999999984) 21; Mul 209 75 62; Mul 210 77 61; Add 209 209 210; Add 209 26 209;
  Sub 210 208 209; Mul 211 207 210; Sub 206 206 211; Mul 211 23 206; Lit 212 17809999999999999 20;
  Mul 213 156 62; Mul 214 158 61; Add 213 213 214; Mul 214 213 62; Sub 171 171 214; Mul 215 158 62;
  Mul 216 156 61; Sub 215 215 216; Mul 216 215 61; Add 171 171 216].
Definition casadi_f0_5 : list instruction := [
  Add 171 171 175; Add 212 212 171; Lit 171 25552041058139319 17; Sq 217 210; Lit 218 (-31543689999999985) 18;
  Mul 219 77 62; Mul 220 75 61; Sub 219 219 220; Add 219 29 219; Sub 220 218 219; Sq 221 220; Add 222 217 221;
  Mul 222 171 222; Add 212 212 222; Lit 222 15129 8; Sub 216 175 216; Add 216 222 216;
  Lit 223 81326650660641028 19; Add 217 223 217; Mul 217 171 217; Add 216 216 217; Sub 212 212 216;
  Mul 217 22 212; Sub 211 211 217; Mul 217 211 23; Lit 224 17626 8; Add 214 214 175; Add 224 224 214;
  Add 223 223 221; Mul 223 171 223; Add 224 224 223; Sub 224 224 216; Mul 223 23 224; Mul 221 22 206;
  Sub 223 223 221; Mul 221 223 22; Add 217 217 221; Add 217 204 217; Lit 221 33804363298149098 17;
  Lit 214 35766769331050302 18; Lit 175 65105751830154185 18; Mul 225 175 23; Lit 226 (-15587418131885522) 21;
  Lit 227 68266656897627187 17; Mul 209 227 209; Add 226 226 209; Mul 209 22 226; Add 225 225 209;
  Add 225 14 225; Sub 209 214 225; Mul 228 221 209; Lit 229 104537160417653 17; Mul 230 23 226; Mul 231 175 22;
  Sub 230 230 231; Add 230 40 230; Sub 231 229 230; Mul 232 228 231; Sub 217 217 232; Mul 232 217 16;
  Lit 233 (-34199999999999999) 22; Mul 234 215 62; Lit 235 (-41189999999999997) 21; Add 234 234 235;
  Mul 235 171 210; Mul 236 235 220; Sub 234 234 236; Add 236 234 234; Mul 237 236 23; Lit 238 2 0;
  Lit 239 35999999999999998 22; Mul 240 154 62; Mul 241 152 61; Sub 240 240 241; Mul 241 157 62;
  Sub 240 240 241; Add 240 239 240; Mul 241 207 220; Sub 240 240 241; Mul 241 238 240; Mul 242 241 22;
  Sub 237 237 242; Mul 242 22 240; Mul 243 23 234; Sub 242 242 243; Add 237 237 242; Add 237 233 237;
  Mul 242 221 231; Lit 243 37000000394383802 18; Lit 244 (-10009867374848859) 18; Mul 219 227 219;
  Add 244 244 219; Add 219 19 244; Sub 245 243 219; Mul 246 242 245; Sub 237 237 246; Mul 246 15 237;
  Add 232 232 246; Add 232 203 232; Lit 246 68880865220038789 17; Lit 247 11056122999999997 17;
  Lit 248 10250648473135598 18; Lit 249 71340300885837415 17; Mul 225 249 225; Add 248 248 225; Mul 225 16 248;
  Lit 250 10604088785269368 18; Mul 219 249 219; Add 250 250 219; Mul 219 15 250; Add 225 225 219;
  Add 225 7 225; Sub 219 247 225; Mul 251 246 219; Lit 252 40138699999999984 19; Lit 253 29960035638188816 20;
  Mul 230 249 230; Add 253 253 230; Sub 230 252 253; Mul 254 251 230; Sub 232 232 254; Mul 254 9 232;
  Lit 255 14589999999999999 21; Add 256 237 237; Mul 257 16 256; Mul 258 15 217; Sub 257 257 258;
  Mul 258 16 237; Sub 257 257 258; Add 257 255 257; Mul 258 246 230; Lit 259 32500479999999984 18;
  Mul 260 16 250; Mul 261 15 248; Sub 260 260 261; Add 260 12 260; Sub 261 259 260; Mul 262 258 261;
  Sub 257 257 262; Add 262 257 257; Mul 263 8 262; Add 254 254 263; Mul 263 8 257; Sub 254 254 263;
  Lit 263 60931733999408122 17; Lit 264 (-48229800000000001) 19; Lit 265 16722288012522134 19;
  Lit 266 58338740386404775 17; Mul 267 266 253].
Definition casadi_f0_6 : list instruction := [
  Add 265 265 267; Add 267 37 265; Sub 268 264 267; Mul 269 263 268; Lit 270 46061201062284104 18;
  Mul 225 266 225; Add 270 270 225; Mul 225 9 270; Lit 271 13540109348464583 18; Mul 260 266 260;
  Add 271 271 260; Mul 260 8 271; Add 225 225 260; Mul 260 269 225; Add 254 254 260;
  Lit 260 36102591500000001 16; Lit 272 (-10369309782515752) 19; Lit 273 78500201571402428 17; Mul 267 273 267;
  Add 272 272 267; Mul 267 260 272; Mul 274 273 225; Mul 275 267 274; Sub 254 254 275; Mul 275 4 254;
  Lit 276 (-16860000000000001) 21; Mul 277 232 8; Mul 278 9 257; Sub 277 277 278; Add 277 276 277;
  Lit 278 (-14104253) 8; Mul 279 8 270; Mul 280 9 271; Sub 279 279 280; Add 279 3 279; Sub 280 278 279;
  Mul 281 263 280; Mul 282 281 268; Sub 277 277 282; Lit 282 (-30323859648594256) 18; Mul 279 273 279;
  Add 282 282 279; Mul 279 260 282; Mul 283 279 272; Sub 277 277 283; Mul 283 5 277; Sub 275 275 283;
  Lit 283 3009 7; Lit 284 81022799999999999 19; Lit 285 14680600000000002 19; Lit 286 57735000000000002 20;
  Add 287 212 224; Mul 288 223 23; Mul 289 211 22; Sub 288 288 289; Sub 287 287 288; Add 287 287 216;
  Add 286 286 287; Sq 287 231; Sq 289 245; Add 290 287 289; Mul 290 221 290; Add 286 286 290;
  Lit 290 61516000000000001 20; Add 291 290 216; Sq 292 209; Add 287 292 287; Mul 287 221 287; Add 291 291 287;
  Sub 286 286 291; Lit 287 (-27386000000000001) 20; Mul 293 241 23; Mul 294 236 22; Add 293 293 294;
  Mul 294 22 234; Mul 295 23 240; Add 294 294 295; Sub 293 293 294; Add 293 287 293; Mul 294 228 245;
  Sub 293 293 294; Mul 294 238 293; Mul 295 16 294; Mul 296 15 286; Sub 295 295 296; Mul 296 295 15;
  Add 297 286 296; Add 297 297 291; Add 285 285 297; Sq 297 230; Sq 298 261; Add 299 297 298; Mul 299 246 299;
  Add 285 285 299; Lit 299 1444279 8; Sub 291 291 296; Add 291 299 291; Sq 296 219; Add 297 296 297;
  Mul 297 246 297; Add 291 291 297; Sub 285 285 291; Mul 297 9 285; Lit 300 (-26343899999999999) 19;
  Mul 301 295 16; Sub 301 301 293; Add 301 300 301; Mul 293 251 261; Sub 301 301 293; Mul 293 238 301;
  Mul 302 8 293; Add 297 297 302; Mul 302 297 9; Add 303 302 291; Add 303 284 303; Sq 304 280; Sq 305 268;
  Add 306 304 305; Mul 306 263 306; Add 303 303 306; Lit 306 (-79999999999999996) 23; Mul 307 297 8;
  Sub 307 307 301; Add 307 306 307; Mul 301 281 225; Add 307 307 301; Mul 307 238 307; Mul 301 4 307;
  Lit 308 10185399999999992 19; Sub 302 285 302; Add 302 302 291; Add 308 308 302; Sq 302 225; Add 305 305 302;
  Mul 305 263 305; Add 308 308 305; Sub 308 308 303; Mul 305 5 308; Sub 301 301 305; Mul 305 301 5;
  Sub 303 303 305; Add 283 283 303; Lit 303 46553910740168264 17; Lit 305 (-56369999999999997) 21;
  Mul 291 4 282; Mul 309 5 274; Add 291 291 309; Sub 305 305 291; Sq 309 305].
Definition casadi_f0_7 : list instruction := [
  Lit 310 14535500000000001 19; Sub 310 310 272; Sq 311 310; Add 309 309 311; Mul 309 303 309; Add 283 283 309;
  Lit 309 41447158900000005 16; Lit 311 (-72688520114221854) 22; Lit 312 87105105532336013 17; Mul 291 312 291;
  Add 311 311 291; Sq 291 311; Lit 313 1874337385347298 19; Mul 314 312 272; Add 313 313 314; Sq 314 313;
  Add 291 291 314; Mul 291 309 291; Add 283 283 291; Sq 291 283; Sq 314 275; Add 291 291 314;
  Lit 314 (-28340607100000001) 16; Mul 315 314 271; Mul 316 265 315; Add 316 257 316; Mul 317 9 316;
  Mul 318 314 270; Mul 319 265 318; Add 319 232 319; Mul 320 8 319; Sub 317 317 320; Mul 320 9 315;
  Mul 321 8 318; Sub 320 320 321; Mul 321 37 320; Add 317 317 321; Mul 321 5 317; Mul 322 9 319; Mul 323 8 316;
  Add 322 322 323; Mul 323 8 315; Mul 324 9 318; Add 323 323 324; Mul 323 37 323; Add 322 322 323;
  Mul 323 4 322; Add 321 321 323; Sq 323 321; Add 291 291 323; Lit 323 165335532 8; Mul 324 323 248;
  Mul 325 324 253; Sub 325 217 325; Mul 326 16 325; Mul 327 323 253; Mul 328 327 250; Sub 328 237 328;
  Mul 329 15 328; Add 326 326 329; Mul 329 9 326; Mul 330 16 328; Mul 331 15 325; Sub 330 330 331;
  Mul 331 8 330; Add 329 329 331; Mul 331 323 250; Mul 332 16 331; Lit 333 (-165335532) 8; Mul 334 333 248;
  Mul 335 15 334; Add 332 332 335; Mul 335 8 332; Mul 336 16 334; Mul 337 15 331; Sub 336 336 337;
  Mul 337 9 336; Sub 335 335 337; Mul 335 37 335; Sub 329 329 335; Mul 335 4 329; Mul 337 8 326; Mul 338 9 330;
  Sub 337 337 338; Mul 338 9 332; Mul 339 8 336; Add 338 338 339; Mul 339 37 338; Add 337 337 339;
  Mul 339 5 337; Sub 335 335 339; Sq 339 335; Add 291 291 339; Lit 339 (-49996528554077319) 19;
  Lit 340 (-117950866) 8; Mul 341 340 226; Mul 342 226 341; Add 339 339 342; Sub 339 339 216; Mul 342 22 341;
  Lit 343 (-76792798099477713) 18; Mul 344 343 23; Add 342 342 344; Mul 344 14 342; Mul 345 343 22;
  Mul 346 23 341; Sub 345 345 346; Mul 346 40 345; Sub 344 344 346; Add 344 339 344; Mul 346 15 344;
  Mul 347 343 244; Add 347 240 347; Mul 348 23 347; Mul 349 244 341; Add 349 234 349; Mul 350 22 349;
  Add 348 348 350; Mul 350 19 342; Add 348 348 350; Mul 350 16 348; Sub 346 346 350; Mul 350 12 342;
  Sub 346 346 350; Mul 350 9 346; Mul 351 15 348; Mul 352 16 344; Add 351 351 352; Mul 352 7 342;
  Add 351 351 352; Mul 352 8 351; Add 350 350 352; Mul 342 3 342; Mul 352 16 345; Mul 353 8 352; Mul 354 15 345;
  Mul 355 9 354; Add 353 353 355; Mul 353 37 353; Sub 342 342 353; Add 350 350 342; Mul 342 4 350;
  Mul 353 8 346; Mul 355 9 351; Sub 353 353 355; Mul 355 9 352; Mul 356 8 354; Sub 355 355 356; Mul 356 37 355].
Definition casadi_f0_8 : list instruction := [
  Add 353 353 356; Mul 356 5 353; Sub 342 342 356; Sq 356 342; Add 291 291 356; Mul 356 23 195; Mul 357 22 184;
  Add 356 356 357; Mul 357 40 192; Mul 358 23 197; Mul 359 19 358; Sub 357 357 359; Add 356 356 357;
  Mul 357 16 356; Mul 359 191 62; Mul 360 170 61; Sub 359 359 360; Mul 360 21 197; Add 359 359 360;
  Mul 360 14 358; Mul 361 40 196; Sub 360 360 361; Add 360 359 360; Mul 361 15 360; Add 357 357 361;
  Mul 361 12 358; Sub 357 357 361; Mul 361 9 357; Mul 362 16 360; Mul 363 15 356; Sub 362 362 363;
  Mul 363 7 358; Add 362 362 363; Mul 363 8 362; Add 361 361 363; Mul 358 3 358; Mul 363 8 198; Mul 364 9 200;
  Sub 363 363 364; Mul 363 37 363; Sub 358 358 363; Add 361 361 358; Mul 358 4 361; Mul 363 8 357;
  Mul 364 9 362; Sub 363 363 364; Mul 201 37 201; Add 363 363 201; Mul 201 5 363; Sub 358 358 201; Sq 201 358;
  Add 291 291 201; Sqrt 291 291; Div 201 283 291; Mul 364 275 201; Lit 365 73415599999999996 19;
  Lit 366 1494858 8; Lit 367 71027000000000004 20; Add 288 288 216; Add 367 367 288; Add 292 292 289;
  Mul 292 221 292; Add 367 367 292; Add 366 366 367; Add 296 296 298; Mul 296 246 296; Add 366 366 296;
  Add 365 365 366; Add 304 304 302; Mul 304 263 304; Add 365 365 304; Sq 304 282; Sq 302 274; Add 304 304 302;
  Mul 304 260 304; Add 365 365 304; Div 304 275 291; Mul 302 365 304; Add 364 364 302; Mul 302 271 315;
  Mul 296 270 318; Add 302 302 296; Sub 302 302 366; Mul 320 3 320; Sub 320 302 320; Div 366 321 291;
  Mul 296 320 366; Sub 364 364 296; Sq 296 248; Sq 298 250; Add 296 296 298; Mul 296 323 296; Add 367 367 296;
  Mul 296 12 332; Mul 298 7 336; Sub 296 296 298; Add 296 367 296; Mul 338 3 338; Sub 338 296 338;
  Div 298 335 291; Mul 292 338 298; Add 364 364 292; Mul 292 22 347; Mul 289 23 349; Sub 292 292 289;
  Mul 289 19 345; Add 292 292 289; Mul 289 12 352; Mul 288 7 354; Add 289 289 288; Add 289 292 289;
  Mul 355 3 355; Sub 355 289 355; Div 288 342 291; Mul 216 355 288; Add 364 364 216; Div 216 358 291;
  Mul 368 202 216; Add 364 364 368; Mul 368 364 216; Sub 368 202 368; Mul 369 364 201; Sub 369 275 369;
  Sq 370 369; Mul 371 364 304; Sub 371 365 371; Sq 372 371; Add 370 370 372; Mul 372 364 366; Add 372 320 372;
  Sq 373 372; Add 370 370 373; Mul 373 364 298; Sub 373 338 373; Sq 374 373; Add 370 370 374; Mul 374 364 288;
  Sub 374 355 374; Sq 375 374; Add 370 370 375; Sq 375 368; Add 370 370 375; Sqrt 370 370; Div 375 368 370;
  Arg 376 1 7; Arg 377 1 6; Div 378 377 291; Mul 379 364 378; Sub 376 376 379].
Definition casadi_f0_9 : list instruction := [
  Div 379 376 370; Mul 380 375 379; Mul 381 320 304; Mul 382 321 201; Sub 381 381 382; Mul 382 302 366;
  Add 381 381 382; Mul 382 296 298; Sub 381 381 382; Mul 382 289 288; Sub 381 381 382; Mul 382 199 216;
  Sub 381 381 382; Mul 382 381 216; Add 382 199 382; Mul 383 381 304; Sub 383 320 383; Div 384 371 370;
  Mul 385 383 384; Mul 386 381 201; Add 386 321 386; Div 387 369 370; Mul 388 386 387; Sub 385 385 388;
  Mul 388 381 366; Sub 388 388 302; Div 389 372 370; Mul 390 388 389; Add 385 385 390; Mul 390 381 298;
  Add 390 296 390; Div 391 373 370; Mul 392 390 391; Sub 385 385 392; Mul 392 381 288; Add 392 289 392;
  Div 393 374 370; Mul 394 392 393; Sub 385 385 394; Mul 394 382 375; Sub 385 385 394; Mul 394 385 375;
  Add 394 382 394; Mul 395 385 387; Add 395 386 395; Sq 396 395; Mul 397 385 384; Sub 397 383 397; Sq 398 397;
  Add 396 396 398; Mul 398 385 389; Sub 398 388 398; Sq 399 398; Add 396 396 399; Mul 399 385 391;
  Add 399 390 399; Sq 400 399; Add 396 396 400; Mul 400 385 393; Add 400 392 400; Sq 401 400; Add 396 396 401;
  Sq 401 394; Add 396 396 401; Sqrt 396 396; Div 401 394 396; Arg 402 1 8; Mul 403 385 379; Sub 402 402 403;
  Mul 403 381 378; Sub 402 402 403; Div 403 402 396; Mul 404 401 403; Sub 380 380 404; Mul 404 335 201;
  Mul 405 338 304; Add 404 404 405; Mul 405 296 366; Add 404 404 405; Mul 405 367 298; Add 404 404 405;
  Mul 405 292 288; Add 404 404 405; Mul 405 194 216; Add 404 404 405; Mul 405 404 216; Sub 405 194 405;
  Mul 406 404 201; Sub 406 335 406; Mul 407 406 387; Mul 408 404 304; Sub 408 338 408; Mul 409 408 384;
  Add 407 407 409; Mul 409 404 366; Sub 409 409 296; Mul 410 409 389; Add 407 407 410; Mul 410 404 298;
  Sub 410 367 410; Mul 411 410 391; Add 407 407 411; Mul 411 404 288; Sub 411 292 411; Mul 412 411 393;
  Add 407 407 412; Mul 412 405 375; Add 407 407 412; Mul 412 407 375; Sub 412 405 412; Mul 413 407 384;
  Sub 413 408 413; Div 414 397 396; Mul 415 413 414; Mul 416 407 387; Sub 416 406 416; Div 417 395 396;
  Mul 418 416 417; Sub 415 415 418; Mul 418 407 389; Sub 418 409 418; Div 419 398 396; Mul 420 418 419;
  Add 415 415 420; Mul 420 407 391; Sub 420 410 420; Div 421 399 396; Mul 422 420 421; Sub 415 415 422;
  Mul 422 407 393; Sub 422 411 422; Div 423 400 396; Mul 424 422 423; Sub 415 415 424; Mul 424 412 401;
  Sub 415 415 424; Mul 424 415 401; Add 424 412 424; Mul 425 415 417; Add 425 416 425; Sq 426 425;
  Mul 427 415 414; Sub 427 413 427; Sq 428 427; Add 426 426 428; Mul 428 415 419; Sub 428 418 428; Sq 429 428;
  Add 426 426 429].
Definition casadi_f0_10 : list instruction := [
  Mul 429 415 421; Add 429 420 429; Sq 430 429; Add 426 426 430; Mul 430 415 423; Add 430 422 430; Sq 431 430;
  Add 426 426 431; Sq 431 424; Add 426 426 431; Sqrt 426 426; Div 431 424 426; Arg 432 1 9; Mul 433 407 379;
  Sub 432 432 433; Mul 433 415 403; Sub 432 432 433; Mul 433 404 378; Sub 432 432 433; Div 433 432 426;
  Mul 434 431 433; Add 380 380 434; Mul 434 342 201; Mul 435 355 304; Add 434 434 435; Mul 435 289 366;
  Add 434 434 435; Mul 435 292 298; Add 434 434 435; Mul 435 339 288; Sub 434 434 435; Mul 435 359 216;
  Sub 434 434 435; Mul 435 434 304; Sub 435 355 435; Mul 436 434 201; Sub 436 342 436; Mul 437 436 387;
  Mul 438 435 384; Add 437 437 438; Mul 438 434 366; Sub 438 438 289; Mul 439 438 389; Add 437 437 439;
  Mul 439 434 298; Sub 439 292 439; Mul 440 439 391; Add 437 437 440; Mul 440 434 288; Add 440 339 440;
  Mul 441 440 393; Sub 437 437 441; Mul 441 434 216; Add 441 359 441; Mul 442 441 375; Sub 437 437 442;
  Mul 442 437 384; Sub 442 435 442; Mul 443 442 414; Mul 444 437 387; Sub 444 436 444; Mul 445 444 417;
  Sub 443 443 445; Mul 445 437 389; Sub 445 438 445; Mul 446 445 419; Add 443 443 446; Mul 446 437 391;
  Sub 446 439 446; Mul 447 446 421; Sub 443 443 447; Mul 447 437 393; Add 447 440 447; Mul 448 447 423;
  Add 443 443 448; Mul 448 437 375; Add 448 441 448; Mul 449 448 401; Add 443 443 449; Mul 449 443 401;
  Sub 449 449 448; Mul 450 443 417; Add 450 444 450; Div 451 425 426; Mul 452 450 451; Mul 453 443 414;
  Sub 453 442 453; Div 454 427 426; Mul 455 453 454; Add 452 452 455; Mul 455 443 419; Sub 455 445 455;
  Div 456 428 426; Mul 457 455 456; Add 452 452 457; Mul 457 443 421; Add 457 446 457; Div 458 429 426;
  Mul 459 457 458; Add 452 452 459; Mul 459 443 423; Sub 459 459 447; Div 460 430 426; Mul 461 459 460;
  Add 452 452 461; Mul 461 449 431; Add 452 452 461; Mul 461 452 431; Sub 461 449 461; Mul 462 452 451;
  Sub 462 450 462; Sq 463 462; Mul 464 452 454; Sub 464 453 464; Sq 465 464; Add 463 463 465; Mul 465 452 456;
  Sub 465 455 465; Sq 466 465; Add 463 463 466; Mul 466 452 458; Sub 466 457 466; Sq 467 466; Add 463 463 467;
  Mul 467 452 460; Sub 467 459 467; Sq 468 467; Add 463 463 468; Sq 468 461; Add 463 463 468; Sqrt 463 463;
  Div 468 461 463; Arg 469 1 10; Mul 470 437 379; Sub 469 469 470; Mul 470 443 403; Sub 469 469 470;
  Mul 470 452 433; Sub 469 469 470; Mul 470 434 378; Sub 469 469 470; Div 470 469 463; Mul 471 468 470;
  Add 380 380 471; Lit 471 56493592345755437 20; Mul 472 358 201; Mul 473 202 304; Add 472 472 473;
  Mul 473 199 366].
Definition casadi_f0_11 : list instruction := [
  Add 472 472 473; Mul 473 194 298; Add 472 472 473; Mul 473 359 288; Sub 472 472 473; Mul 473 471 216;
  Add 472 472 473; Mul 473 472 216; Sub 473 471 473; Mul 474 472 201; Sub 474 358 474; Mul 475 474 387;
  Mul 476 472 304; Sub 476 202 476; Mul 477 476 384; Add 475 475 477; Mul 477 472 366; Sub 477 477 199;
  Mul 478 477 389; Add 475 475 478; Mul 478 472 298; Sub 478 194 478; Mul 479 478 391; Add 475 475 479;
  Mul 479 472 288; Add 479 359 479; Mul 480 479 393; Sub 475 475 480; Mul 480 473 375; Add 475 475 480;
  Mul 480 475 375; Sub 480 473 480; Mul 481 475 384; Sub 481 476 481; Mul 482 481 414; Mul 483 475 387;
  Sub 483 474 483; Mul 484 483 417; Sub 482 482 484; Mul 484 475 389; Sub 484 477 484; Mul 485 484 419;
  Add 482 482 485; Mul 485 475 391; Sub 485 478 485; Mul 486 485 421; Sub 482 482 486; Mul 486 475 393;
  Add 486 479 486; Mul 487 486 423; Add 482 482 487; Mul 487 480 401; Sub 482 482 487; Mul 487 482 401;
  Add 487 480 487; Mul 488 482 417; Add 488 483 488; Mul 489 488 451; Mul 490 482 414; Sub 490 481 490;
  Mul 491 490 454; Add 489 489 491; Mul 491 482 419; Sub 491 484 491; Mul 492 491 456; Add 489 489 492;
  Mul 492 482 421; Add 492 485 492; Mul 493 492 458; Add 489 489 493; Mul 493 482 423; Sub 493 493 486;
  Mul 494 493 460; Add 489 489 494; Mul 494 487 431; Add 489 489 494; Mul 494 489 431; Sub 494 487 494;
  Mul 495 489 451; Sub 495 488 495; Div 496 462 463; Mul 497 495 496; Mul 498 489 454; Sub 498 490 498;
  Div 499 464 463; Mul 500 498 499; Add 497 497 500; Mul 500 489 456; Sub 500 491 500; Div 501 465 463;
  Mul 502 500 501; Add 497 497 502; Mul 502 489 458; Sub 502 492 502; Div 503 466 463; Mul 504 502 503;
  Add 497 497 504; Mul 504 489 460; Sub 504 493 504; Div 505 467 463; Mul 506 504 505; Add 497 497 506;
  Mul 506 494 468; Add 497 497 506; Mul 506 497 468; Sub 506 494 506; Mul 507 497 496; Sub 507 495 507;
  Sq 508 507; Mul 509 497 499; Sub 509 498 509; Sq 510 509; Add 508 508 510; Mul 510 497 501; Sub 510 500 510;
  Sq 511 510; Add 508 508 511; Mul 511 497 503; Sub 511 502 511; Sq 512 511; Add 508 508 512; Mul 512 497 505;
  Sub 512 504 512; Sq 513 512; Add 508 508 513; Sq 513 506; Add 508 508 513; Sqrt 508 508; Div 513 506 508;
  Arg 514 1 11; Mul 515 475 379; Sub 514 514 515; Mul 515 482 403; Sub 514 514 515; Mul 515 489 433;
  Sub 514 514 515; Mul 515 497 470; Sub 514 514 515; Mul 515 472 378; Sub 514 514 515; Div 515 514 508;
  Mul 516 513 515; Add 380 380 516; Mul 516 216 378; Add 380 380 516; Mul 516 53 380; Mul 517 90 516;
  Mul 518 55 380; Mul 519 90 518].
Definition casadi_f0_12 : list instruction := [
  Sub 517 517 519; Mul 519 54 380; Mul 520 90 519; Add 517 517 520; Mul 520 18 42; Mul 521 39 20;
  Sub 520 520 521; Lit 521 37429752999999999 17; Mul 522 34 52; Mul 523 43 64; Mul 524 42 68; Add 523 523 524;
  Add 522 522 523; Mul 523 45 522; Mul 524 521 523; Lit 525 35419999999999991 19; Mul 526 525 34;
  Mul 527 208 43; Mul 528 218 42; Add 527 527 528; Add 526 526 527; Add 526 39 526; Mul 527 524 526;
  Mul 528 24 52; Mul 529 27 64; Mul 530 20 68; Add 529 529 530; Add 528 528 529; Mul 529 45 528;
  Mul 530 521 529; Mul 531 525 24; Mul 532 208 27; Mul 533 218 20; Add 532 532 533; Add 531 531 532;
  Add 531 18 531; Mul 532 530 531; Add 533 527 532; Mul 534 526 524; Mul 535 531 530; Add 536 534 535;
  Sub 537 533 536; Add 537 537 89; Mul 538 520 537; Mul 539 98 20; Mul 540 18 99; Sub 539 539 540;
  Mul 540 525 100; Mul 541 208 102; Mul 542 218 99; Add 541 541 542; Add 540 540 541; Add 540 98 540;
  Mul 541 524 540; Mul 542 24 116; Mul 543 27 122; Mul 544 20 126; Add 543 543 544; Add 542 542 543;
  Mul 543 98 522; Mul 544 100 52; Mul 545 102 64; Mul 546 99 68; Add 545 545 546; Add 544 544 545;
  Mul 545 39 544; Sub 543 543 545; Add 542 542 543; Mul 543 45 542; Mul 543 521 543; Mul 545 45 544;
  Mul 546 521 545; Mul 547 526 546; Add 547 543 547; Sub 541 541 547; Mul 547 540 522; Mul 548 526 544;
  Sub 547 547 548; Sub 547 542 547; Mul 547 521 547; Mul 548 45 547; Sub 549 541 548; Add 549 549 135;
  Mul 550 539 549; Mul 551 39 99; Mul 552 98 42; Sub 551 551 552; Mul 552 34 116; Mul 553 43 122;
  Mul 554 42 126; Add 553 553 554; Add 552 552 553; Mul 553 18 544; Mul 554 98 528; Sub 553 553 554;
  Add 552 552 553; Mul 553 45 552; Mul 553 521 553; Mul 554 531 546; Sub 554 553 554; Mul 555 530 540;
  Add 554 554 555; Mul 555 531 544; Mul 556 540 528; Sub 555 555 556; Sub 555 552 555; Mul 555 521 555;
  Mul 556 45 555; Add 557 554 556; Add 557 557 143; Mul 558 551 557; Add 550 550 558; Add 538 538 550;
  Mul 550 553 526; Mul 558 543 531; Add 559 550 558; Mul 560 526 553; Mul 561 531 543; Add 562 560 561;
  Add 563 559 562; Lit 564 26809999999999996 21; Mul 565 564 34; Mul 566 205 43; Lit 567 71999999999999997 22;
  Mul 568 567 42; Add 566 566 568; Add 565 565 566; Mul 566 565 100; Mul 568 205 34; Lit 569 2497 8;
  Mul 570 569 43; Add 568 568 570; Mul 570 568 102; Add 566 566 570; Mul 570 239 27; Add 566 566 570;
  Mul 570 521 540; Mul 571 570 526; Sub 571 566 571; Mul 572 571 529; Mul 573 564 24; Mul 574 205 27;
  Mul 575 567 20; Add 574 574 575; Add 573 573 574; Mul 574 573 100; Mul 575 205 24; Mul 576 569 27;
  Add 575 575 576].
Definition casadi_f0_13 : list instruction := [
  Mul 576 575 102; Add 574 574 576; Mul 576 239 43; Sub 574 574 576; Mul 576 570 531; Sub 576 574 576;
  Mul 577 576 523; Sub 578 572 577; Sub 563 563 578; Mul 578 523 576; Mul 579 529 571; Sub 580 578 579;
  Add 563 563 580; Add 563 563 149; Mul 580 99 563; Lit 581 51779999999999996 21; Mul 582 565 34;
  Mul 583 568 43; Add 582 582 583; Sub 581 581 582; Mul 583 573 24; Mul 584 575 27; Add 583 583 584;
  Sub 581 581 583; Add 581 581 222; Sq 584 526; Sq 585 531; Add 586 584 585; Mul 586 521 586; Add 586 581 586;
  Mul 587 529 586; Mul 588 545 576; Sub 587 587 588; Mul 588 100 116; Mul 589 102 122; Mul 590 99 126;
  Add 589 589 590; Add 588 588 589; Mul 589 39 528; Mul 590 18 522; Sub 589 589 590; Add 588 588 589;
  Mul 589 45 588; Mul 589 521 589; Mul 590 526 589; Mul 591 553 540; Add 590 590 591; Add 582 582 222;
  Sq 591 540; Add 585 591 585; Mul 585 521 585; Add 585 582 585; Mul 592 585 529; Mul 593 573 34;
  Mul 594 575 43; Add 593 593 594; Mul 594 239 102; Add 593 593 594; Mul 594 521 526; Mul 595 594 531;
  Sub 595 593 595; Mul 596 595 523; Sub 592 592 596; Add 590 590 592; Sub 587 587 590; Mul 590 574 544;
  Mul 592 593 522; Add 590 590 592; Add 583 583 222; Mul 222 583 528; Add 590 590 222; Mul 222 540 555;
  Mul 592 526 528; Mul 596 531 522; Sub 592 592 596; Sub 592 588 592; Mul 592 521 592; Mul 596 526 592;
  Sub 222 222 596; Add 590 590 222; Mul 590 45 590; Sub 587 587 590; Add 587 587 179; Mul 222 42 587;
  Mul 596 545 571; Mul 597 523 586; Sub 596 596 597; Mul 597 531 589; Mul 598 543 540; Add 597 597 598;
  Mul 598 595 529; Add 591 591 584; Mul 591 521 591; Add 591 583 591; Mul 584 591 523; Sub 598 598 584;
  Add 597 597 598; Sub 596 596 597; Mul 597 566 544; Mul 598 582 522; Add 597 597 598; Mul 598 593 528;
  Add 597 597 598; Mul 598 531 592; Mul 584 540 547; Sub 598 598 584; Add 597 597 598; Mul 597 45 597;
  Add 596 596 597; Add 596 596 189; Mul 598 20 596; Add 222 222 598; Add 580 580 222; Sub 538 538 580;
  Mul 580 393 379; Mul 222 423 403; Sub 580 580 222; Mul 222 460 433; Add 580 580 222; Mul 222 505 470;
  Add 580 580 222; Div 222 512 508; Mul 598 222 515; Add 580 580 598; Mul 598 288 378; Add 580 580 598;
  Mul 598 53 580; Mul 584 538 598; Add 517 517 584; Mul 584 55 580; Mul 599 538 584; Sub 517 517 599;
  Mul 599 54 580; Mul 600 538 599; Add 517 517 600; Mul 600 78 34; Mul 601 60 24; Sub 600 600 601;
  Mul 601 173 600; Mul 602 130 24; Mul 603 78 100; Sub 602 602 603; Mul 603 153 602; Add 601 601 603;
  Mul 603 60 100; Mul 604 130 34; Sub 603 603 604; Mul 604 164 603; Add 601 601 604].
Definition casadi_f0_14 : list instruction := [
  Mul 604 138 100; Mul 605 180 34; Sub 604 604 605; Mul 605 130 103; Mul 606 60 35; Sub 605 605 606;
  Add 604 604 605; Mul 605 104 602; Mul 606 74 600; Sub 605 605 606; Sub 604 604 605; Mul 604 44 604;
  Mul 605 74 604; Mul 606 180 24; Mul 607 121 100; Sub 606 606 607; Mul 607 78 35; Mul 608 130 137;
  Sub 607 607 608; Add 606 606 607; Mul 607 83 600; Mul 608 104 603; Sub 607 607 608; Sub 606 606 607;
  Mul 606 44 606; Mul 607 83 606; Sub 605 605 607; Add 601 601 605; Mul 605 89 35; Add 106 106 134;
  Mul 607 106 103; Sub 140 140 142; Mul 608 140 137; Add 607 607 608; Add 605 605 607; Mul 607 149 100;
  Mul 608 69 187; Mul 609 80 177; Sub 608 608 609; Mul 609 104 139; Mul 610 181 74; Add 609 609 610;
  Mul 610 166 131; Mul 611 178 80; Sub 610 610 611; Add 609 609 610; Sub 608 608 609; Add 608 608 182;
  Mul 182 608 34; Mul 609 69 183; Mul 610 80 187; Sub 609 609 610; Mul 610 104 128; Mul 611 181 83;
  Add 610 610 611; Mul 611 178 69; Mul 612 161 131; Sub 611 611 612; Add 610 610 611; Sub 609 609 610;
  Sub 609 609 190; Mul 190 609 24; Add 182 182 190; Add 607 607 182; Sub 605 605 607; Add 601 601 605;
  Mul 605 391 379; Mul 607 421 403; Sub 605 605 607; Mul 607 458 433; Add 605 605 607; Mul 607 503 470;
  Add 605 605 607; Div 607 511 508; Mul 182 607 515; Add 605 605 182; Mul 182 298 378; Add 605 605 182;
  Mul 182 58 605; Mul 190 601 182; Add 517 517 190; Add 190 581 173; Sub 610 526 74; Sq 611 610; Sub 612 531 83;
  Sq 613 612; Add 614 611 613; Mul 614 171 614; Add 190 190 614; Mul 614 528 42; Mul 615 522 20;
  Sub 614 614 615; Mul 615 190 614; Add 616 566 153; Sub 617 540 104; Mul 618 171 617; Mul 619 618 610;
  Sub 616 616 619; Mul 619 544 20; Mul 620 528 99; Sub 619 619 620; Mul 620 616 619; Add 615 615 620;
  Add 620 574 164; Mul 621 618 612; Sub 620 620 621; Mul 621 522 99; Mul 622 544 42; Sub 621 621 622;
  Mul 622 620 621; Add 615 615 622; Lit 622 31733343102372813 17; Mul 623 622 526; Mul 624 227 74;
  Add 623 623 624; Lit 624 117950866 8; Mul 625 552 99; Mul 626 588 42; Sub 625 625 626; Mul 626 544 539;
  Mul 627 522 520; Sub 626 626 627; Add 625 625 626; Mul 626 622 540; Mul 627 227 104; Add 626 626 627;
  Mul 627 626 619; Mul 628 623 614; Sub 627 627 628; Sub 627 625 627; Mul 627 624 627; Mul 628 623 627;
  Mul 629 622 531; Mul 630 227 83; Add 629 629 630; Mul 630 588 20; Mul 631 542 99; Sub 630 630 631;
  Mul 631 528 520; Mul 632 544 551; Sub 631 631 632; Add 630 630 631; Mul 631 629 614; Mul 632 626 621;
  Sub 631 631 632; Sub 631 630 631; Mul 631 624 631; Mul 632 629 631; Sub 628 628 632].
Definition casadi_f0_15 : list instruction := [
  Add 615 615 628; Mul 628 537 520; Add 541 541 548; Add 541 541 106; Mul 632 541 539; Sub 554 554 556;
  Add 554 554 140; Mul 633 554 551; Add 632 632 633; Add 628 628 632; Mul 632 563 99; Mul 633 523 595;
  Mul 634 529 585; Sub 633 633 634; Mul 634 540 553; Mul 635 589 526; Add 634 634 635; Mul 635 576 545;
  Mul 636 586 529; Sub 635 635 636; Add 634 634 635; Sub 633 633 634; Add 633 633 590; Add 633 633 608;
  Mul 590 633 42; Mul 634 523 591; Mul 635 529 595; Sub 634 634 635; Mul 635 540 543; Mul 636 589 531;
  Add 635 635 636; Mul 636 586 523; Mul 637 571 545; Sub 636 636 637; Add 635 635 636; Sub 634 634 635;
  Sub 634 634 597; Add 634 634 609; Mul 597 634 20; Add 590 590 597; Add 632 632 590; Sub 628 628 632;
  Add 615 615 628; Mul 628 67 605; Mul 632 615 628; Add 517 517 632; Lit 632 (-37809999999999992) 21;
  Mul 590 632 17; Lit 597 (-54772000000000002) 20; Mul 635 597 20; Add 590 590 635; Mul 635 590 97;
  Mul 636 204 17; Lit 637 (-68399999999999997) 22; Mul 638 637 20; Add 636 636 638; Mul 638 636 0;
  Sub 635 635 638; Mul 638 287 1; Mul 639 233 32; Sub 638 638 639; Sub 635 635 638; Add 638 635 620;
  Mul 639 214 97; Mul 640 243 99; Mul 641 229 0; Sub 640 640 641; Add 639 639 640; Add 639 95 639;
  Sub 640 639 626; Mul 641 221 640; Mul 642 214 17; Mul 643 243 20; Add 642 642 643; Add 642 11 642;
  Sub 643 642 629; Mul 644 641 643; Sub 638 638 644; Mul 644 97 50; Mul 645 99 66; Mul 646 0 57;
  Sub 645 645 646; Add 644 644 645; Mul 645 644 1; Mul 646 32 50; Mul 647 1 57; Mul 648 42 66; Add 647 647 648;
  Add 646 646 647; Mul 647 646 0; Add 645 645 647; Mul 647 638 645; Lit 648 57300000000000038 21;
  Mul 649 632 32; Mul 650 204 1; Mul 651 597 42; Add 650 650 651; Add 649 649 650; Mul 650 649 32;
  Mul 651 204 32; Lit 652 9511000000000003 20; Mul 653 652 1; Mul 654 637 42; Add 653 653 654; Add 651 651 653;
  Mul 653 651 1; Add 650 650 653; Sub 648 648 650; Mul 653 590 17; Sub 648 648 653; Add 648 648 290;
  Add 654 648 190; Mul 655 214 32; Mul 656 229 1; Mul 657 243 42; Add 656 656 657; Add 655 655 656;
  Add 655 38 655; Sub 656 655 623; Sq 657 656; Sq 658 643; Add 659 657 658; Mul 659 221 659; Add 654 654 659;
  Mul 659 17 50; Mul 660 20 66; Add 659 659 660; Mul 660 659 1; Mul 661 654 660; Mul 662 649 97; Mul 663 651 0;
  Sub 662 662 663; Mul 663 233 17; Sub 662 662 663; Add 663 662 616; Mul 664 641 656; Sub 663 663 664;
  Mul 664 659 0; Mul 665 663 664; Add 661 661 665; Sub 647 647 661; Lit 661 28659699114162585 17;
  Mul 665 661 655; Mul 666 249 623; Add 665 665 666; Mul 666 97 112; Mul 667 99 125; Mul 668 0 118;
  Sub 667 667 668].
Definition casadi_f0_16 : list instruction := [
  Add 666 666 667; Mul 667 38 659; Mul 668 11 646; Sub 667 667 668; Add 666 666 667; Mul 667 666 1;
  Mul 668 32 112; Mul 669 1 118; Mul 670 42 125; Add 669 669 670; Add 668 668 669; Mul 669 11 644;
  Mul 670 95 659; Sub 669 669 670; Add 668 668 669; Mul 669 668 0; Add 667 667 669; Mul 669 11 1;
  Mul 670 646 669; Mul 671 11 0; Mul 672 644 671; Sub 670 670 672; Add 667 667 670; Mul 670 665 660;
  Mul 672 661 639; Mul 673 249 626; Add 672 672 673; Mul 673 672 664; Sub 670 670 673; Sub 670 667 670;
  Mul 670 323 670; Mul 673 665 670; Mul 674 661 642; Mul 675 249 629; Add 674 674 675; Mul 675 674 660;
  Mul 676 672 645; Add 675 675 676; Mul 676 17 112; Mul 677 20 125; Add 676 676 677; Mul 677 95 646;
  Mul 678 38 644; Sub 677 677 678; Add 676 676 677; Mul 677 676 0; Mul 678 659 669; Mul 679 95 1; Mul 680 38 0;
  Add 679 679 680; Mul 680 644 679; Add 678 678 680; Add 677 677 678; Sub 675 675 677; Mul 675 323 675;
  Mul 678 674 675; Sub 673 673 678; Add 647 647 673; Lit 673 47384665999999998 17; Mul 678 45 668;
  Mul 678 673 678; Mul 680 45 644; Mul 681 673 680; Mul 682 642 681; Sub 682 678 682; Mul 683 45 659;
  Mul 684 673 683; Mul 685 684 639; Add 682 682 685; Mul 685 642 644; Mul 686 639 659; Sub 685 685 686;
  Sub 685 668 685; Mul 685 673 685; Mul 686 45 685; Sub 687 682 686; Add 687 687 554; Mul 688 687 679;
  Mul 689 45 646; Mul 690 673 689; Mul 691 690 639; Mul 692 45 676; Mul 692 673 692; Mul 693 655 681;
  Add 693 692 693; Sub 691 691 693; Mul 693 639 646; Mul 694 655 644; Sub 693 693 694; Sub 693 676 693;
  Mul 693 673 693; Mul 694 45 693; Add 695 691 694; Add 695 695 541; Mul 696 695 671; Sub 688 688 696;
  Mul 696 690 655; Mul 697 684 642; Add 698 696 697; Mul 699 655 690; Mul 700 642 684; Add 701 699 700;
  Sub 702 698 701; Add 702 702 537; Mul 703 702 669; Sub 688 688 703; Mul 703 590 32; Mul 704 636 1;
  Add 703 703 704; Mul 704 233 97; Mul 705 287 0; Add 704 704 705; Sub 703 703 704; Mul 704 673 655;
  Mul 705 704 642; Sub 705 703 705; Mul 706 689 705; Add 650 650 290; Sq 707 639; Sq 708 642; Add 709 707 708;
  Mul 709 673 709; Add 709 650 709; Mul 710 683 709; Sub 706 706 710; Mul 710 639 678; Mul 711 45 666;
  Mul 711 673 711; Mul 712 711 655; Add 710 710 712; Mul 712 673 639; Mul 713 712 642; Sub 713 635 713;
  Mul 714 713 680; Sq 715 655; Add 708 715 708; Mul 708 673 708; Add 708 648 708; Mul 716 708 683;
  Sub 714 714 716; Add 710 710 714; Sub 706 706 710; Mul 710 635 644; Mul 714 703 646; Add 710 710 714;
  Add 653 653 290; Mul 290 653 659; Add 710 710 290; Mul 290 639 685].
Definition casadi_f0_17 : list instruction := [
  Mul 714 655 659; Mul 716 642 646; Sub 714 714 716; Sub 714 666 714; Mul 714 673 714; Mul 716 655 714;
  Sub 290 290 716; Add 710 710 290; Mul 710 45 710; Add 706 706 710; Add 706 706 633; Mul 290 706 1;
  Mul 716 678 655; Mul 717 692 642; Add 718 716 717; Mul 719 655 678; Mul 720 642 692; Add 721 719 720;
  Add 722 718 721; Mul 723 712 655; Sub 723 662 723; Mul 724 723 683; Mul 725 713 689; Sub 726 724 725;
  Sub 722 722 726; Mul 726 689 713; Mul 727 683 723; Sub 728 726 727; Add 722 722 728; Add 722 722 563;
  Mul 728 722 0; Sub 290 290 728; Add 688 688 290; Add 647 647 688; Mul 688 53 605; Mul 290 647 688;
  Add 517 517 290; Add 682 682 686; Add 682 682 557; Mul 290 679 682; Sub 691 691 694; Add 691 691 549;
  Mul 728 671 691; Sub 290 290 728; Mul 728 669 702; Sub 290 290 728; Mul 728 683 708; Mul 729 680 713;
  Sub 728 728 729; Mul 729 655 711; Mul 730 678 639; Add 729 729 730; Mul 730 709 683; Mul 731 705 689;
  Sub 730 730 731; Add 729 729 730; Sub 728 728 729; Sub 728 728 710; Add 728 728 587; Mul 710 1 728;
  Mul 729 0 722; Sub 710 710 729; Add 290 290 710; Mul 710 55 605; Mul 729 290 710; Sub 517 517 729;
  Mul 729 92 1; Mul 730 36 0; Add 729 729 730; Mul 730 729 710; Mul 731 687 730; Sub 517 517 731; Mul 731 2 0;
  Mul 732 54 605; Mul 733 731 732; Mul 734 6 0; Mul 735 734 710; Sub 733 733 735; Mul 735 695 733;
  Sub 517 517 735; Mul 735 2 1; Mul 736 735 732; Mul 737 6 1; Mul 738 737 710; Sub 736 736 738; Mul 738 702 736;
  Sub 517 517 738; Mul 738 290 732; Add 517 517 738; Mul 738 0 732; Mul 739 0 710; Sub 738 738 739;
  Mul 739 722 738; Sub 517 517 739; Mul 739 1 710; Mul 740 1 732; Sub 739 739 740; Mul 740 706 739;
  Sub 517 517 740; Mul 740 5 49; Mul 741 4 47; Add 740 740 741; Mul 741 740 1; Mul 742 741 732; Mul 743 10 48;
  Mul 744 13 51; Add 743 743 744; Mul 744 743 1; Mul 745 744 710; Sub 742 742 745; Mul 745 654 742;
  Sub 517 517 745; Mul 745 740 0; Mul 746 745 732; Mul 747 743 0; Mul 748 747 710; Sub 746 746 748;
  Mul 748 663 746; Sub 517 517 748; Mul 748 93 48; Mul 749 96 51; Mul 750 0 56; Sub 749 749 750;
  Add 748 748 749; Mul 749 748 1; Mul 750 30 48; Mul 751 1 56; Mul 752 33 51; Add 751 751 752; Add 750 750 751;
  Mul 751 750 0; Add 749 749 751; Mul 751 749 710; Mul 752 94 47; Mul 753 0 54; Sub 752 752 753; Mul 753 91 49;
  Sub 752 752 753; Mul 753 752 1; Mul 754 1 54; Mul 755 31 47; Add 754 754 755; Mul 755 28 49; Sub 754 754 755;
  Mul 755 754 0; Add 753 753 755; Mul 755 753 732; Sub 751 751 755; Mul 755 638 751].
Definition casadi_f0_18 : list instruction := [
  Sub 517 517 755; Mul 755 672 751; Mul 756 13 113; Mul 757 10 110; Sub 756 756 757; Mul 757 92 750;
  Mul 758 36 748; Sub 757 757 758; Add 756 756 757; Mul 757 756 0; Mul 758 743 737; Mul 759 748 729;
  Add 758 758 759; Add 757 757 758; Mul 758 757 710; Mul 759 674 742; Add 758 758 759; Sub 755 755 758;
  Mul 758 740 735; Mul 759 758 732; Add 755 755 759; Mul 755 323 755; Mul 759 674 755; Add 517 517 759;
  Mul 759 665 742; Mul 760 748 734; Mul 761 750 737; Sub 760 760 761; Mul 761 96 113; Mul 762 0 117;
  Sub 761 761 762; Mul 762 93 110; Sub 761 761 762; Mul 762 36 743; Mul 763 6 750; Sub 762 762 763;
  Add 761 761 762; Mul 762 761 1; Mul 763 1 117; Mul 764 33 113; Add 763 763 764; Mul 764 30 110;
  Sub 763 763 764; Mul 764 6 748; Mul 765 92 743; Sub 764 764 765; Add 763 763 764; Mul 764 763 0;
  Add 762 762 764; Sub 760 760 762; Mul 762 760 710; Sub 759 759 762; Mul 762 672 746; Sub 759 759 762;
  Mul 762 2 752; Mul 764 762 0; Mul 765 2 754; Mul 766 765 1; Sub 764 764 766; Mul 766 754 735; Mul 767 752 731;
  Sub 766 766 767; Add 764 764 766; Mul 766 764 732; Sub 759 759 766; Mul 759 323 759; Mul 766 665 759;
  Sub 517 517 766; Add 707 707 715; Mul 707 673 707; Add 707 653 707; Mul 715 689 707; Mul 766 683 705;
  Sub 715 715 766; Mul 766 639 692; Mul 767 711 642; Add 766 766 767; Mul 767 708 689; Mul 768 723 680;
  Sub 767 767 768; Add 766 766 767; Sub 715 715 766; Mul 766 662 644; Mul 767 650 646; Add 766 766 767;
  Mul 767 703 659; Add 766 766 767; Mul 767 642 714; Mul 768 639 693; Sub 767 767 768; Add 766 766 767;
  Mul 766 45 766; Sub 715 715 766; Add 715 715 634; Mul 767 46 605; Mul 768 715 767; Add 517 517 768;
  Mul 768 389 379; Mul 769 419 403; Add 768 768 769; Mul 769 456 433; Add 768 768 769; Mul 769 501 470;
  Add 768 768 769; Div 769 510 508; Mul 770 769 515; Add 768 768 770; Mul 770 366 378; Sub 768 768 770;
  Mul 770 58 768; Mul 771 601 770; Sub 517 517 771; Mul 771 67 768; Mul 772 615 771; Sub 517 517 772;
  Mul 772 53 768; Mul 773 647 772; Sub 517 517 773; Mul 773 729 772; Mul 774 679 688; Sub 773 773 774;
  Mul 774 682 773; Sub 517 517 774; Lit 774 (-12468940000000001) 18; Lit 775 (-1297473) 8; Mul 776 775 30;
  Mul 777 203 1; Lit 778 (-52687799999999998) 19; Mul 779 778 33; Add 777 777 779; Add 776 776 777;
  Mul 777 776 30; Mul 779 203 30; Lit 780 50578999999999902 20; Mul 781 780 1; Lit 782 29179999999999998 21;
  Mul 783 782 33; Add 781 781 783; Add 779 779 781; Mul 781 779 1; Add 777 777 781; Sub 774 774 777;
  Mul 781 775 10; Mul 783 778 13; Add 781 781 783; Mul 783 781 10; Sub 774 774 783; Add 774 774 299;
  Add 784 774 654].
Definition casadi_f0_19 : list instruction := [
  Mul 785 247 30; Mul 786 252 1; Mul 787 259 33; Add 786 786 787; Add 785 785 786; Add 785 36 785;
  Sub 786 785 665; Sq 787 786; Mul 788 247 10; Mul 789 259 13; Add 788 788 789; Add 788 6 788; Sub 789 788 674;
  Sq 790 789; Add 791 787 790; Mul 791 246 791; Add 784 784 791; Mul 791 784 744; Mul 792 776 93; Mul 793 779 0;
  Sub 792 792 793; Mul 793 255 10; Sub 792 792 793; Add 793 792 663; Mul 794 247 93; Mul 795 259 96;
  Mul 796 252 0; Sub 795 795 796; Add 794 794 795; Add 794 92 794; Sub 795 794 672; Mul 796 246 795;
  Mul 797 796 786; Sub 793 793 797; Mul 797 793 747; Add 791 791 797; Mul 797 781 93; Mul 798 203 10;
  Mul 799 782 13; Add 798 798 799; Mul 799 798 0; Sub 797 797 799; Mul 799 300 1; Mul 800 255 30;
  Sub 799 799 800; Sub 797 797 799; Add 799 797 638; Mul 800 796 789; Sub 799 799 800; Mul 800 799 749;
  Sub 791 791 800; Lit 800 41661259613595214 17; Mul 801 800 785; Mul 802 266 665; Add 801 801 802;
  Lit 802 28340607100000001 16; Mul 803 800 794; Mul 804 266 672; Add 803 803 804; Mul 804 803 747;
  Mul 805 801 744; Sub 804 804 805; Sub 804 760 804; Mul 804 802 804; Mul 805 801 804; Mul 806 800 788;
  Mul 807 266 674; Add 806 806 807; Mul 807 806 744; Mul 808 803 749; Add 807 807 808; Sub 807 757 807;
  Mul 807 802 807; Mul 808 806 807; Sub 805 805 808; Add 791 791 805; Lit 805 118070539 8; Mul 808 45 750;
  Mul 809 805 808; Mul 810 809 785; Mul 811 45 743; Mul 812 805 811; Mul 813 812 788; Add 814 810 813;
  Mul 815 785 809; Mul 816 788 812; Add 817 815 816; Sub 818 814 817; Add 818 818 702; Mul 819 818 737;
  Mul 820 809 794; Mul 821 45 756; Mul 821 805 821; Mul 822 45 748; Mul 823 805 822; Mul 824 785 823;
  Add 824 821 824; Sub 820 820 824; Mul 824 794 750; Mul 825 785 748; Sub 824 824 825; Sub 824 756 824;
  Mul 824 805 824; Mul 825 45 824; Add 826 820 825; Add 826 826 695; Mul 827 826 734; Mul 828 45 763;
  Mul 828 805 828; Mul 829 788 823; Sub 829 828 829; Mul 830 812 794; Add 829 829 830; Mul 830 788 748;
  Mul 831 794 743; Sub 830 830 831; Sub 830 763 830; Mul 830 805 830; Mul 831 45 830; Sub 832 829 831;
  Add 832 832 687; Mul 833 832 729; Sub 827 827 833; Add 819 819 827; Mul 827 828 785; Mul 833 821 788;
  Add 834 827 833; Mul 835 785 828; Mul 836 788 821; Add 837 835 836; Add 838 834 837; Mul 839 805 794;
  Mul 840 839 785; Sub 840 792 840; Mul 841 840 811; Mul 842 839 788; Sub 842 797 842; Mul 843 842 808;
  Sub 844 841 843; Sub 838 838 844; Mul 844 808 842; Mul 845 811 840; Sub 846 844 845; Add 838 838 846;
  Add 838 838 722; Mul 846 838 0; Mul 847 781 30; Mul 848 798 1; Add 847 847 848].
Definition casadi_f0_20 : list instruction := [
  Mul 848 255 93; Mul 849 300 0; Add 848 848 849; Sub 847 847 848; Mul 848 805 785; Mul 849 848 788;
  Sub 849 847 849; Mul 850 808 849; Add 777 777 299; Sq 851 794; Sq 852 788; Add 853 851 852; Mul 853 805 853;
  Add 853 777 853; Mul 854 811 853; Sub 850 850 854; Mul 854 794 828; Mul 855 45 761; Mul 855 805 855;
  Mul 856 855 785; Add 854 854 856; Mul 856 842 822; Sq 857 785; Add 852 857 852; Mul 852 805 852;
  Add 852 774 852; Mul 858 852 811; Sub 856 856 858; Add 854 854 856; Sub 850 850 854; Mul 854 797 748;
  Mul 856 847 750; Add 854 854 856; Add 783 783 299; Mul 299 783 743; Add 854 854 299; Mul 299 794 830;
  Mul 856 785 743; Mul 858 788 750; Sub 856 856 858; Sub 856 761 856; Mul 856 805 856; Mul 858 785 856;
  Sub 299 299 858; Add 854 854 299; Mul 854 45 854; Add 850 850 854; Add 850 850 706; Mul 299 850 1;
  Sub 846 846 299; Add 819 819 846; Add 791 791 819; Mul 819 55 768; Mul 846 791 819; Sub 517 517 846;
  Add 829 829 831; Add 829 829 682; Mul 846 729 819; Mul 299 829 846; Add 517 517 299; Mul 299 54 768;
  Mul 858 731 299; Mul 859 826 858; Add 517 517 859; Mul 859 735 299; Mul 860 818 859; Add 517 517 860;
  Mul 860 737 818; Sub 820 820 825; Add 820 820 691; Mul 861 734 820; Mul 862 729 829; Sub 861 861 862;
  Add 860 860 861; Mul 861 0 838; Mul 862 811 852; Mul 863 822 842; Sub 862 862 863; Mul 863 785 855;
  Mul 864 828 794; Add 863 863 864; Mul 864 853 811; Mul 865 849 808; Sub 864 864 865; Add 863 863 864;
  Sub 862 862 863; Sub 862 862 854; Add 862 862 728; Mul 854 1 862; Sub 861 861 854; Add 860 860 861;
  Mul 861 860 299; Add 517 517 861; Mul 861 0 299; Mul 854 838 861; Add 517 517 854; Mul 854 1 299;
  Mul 863 850 854; Sub 517 517 863; Mul 863 741 299; Mul 864 784 863; Add 517 517 864; Mul 864 745 299;
  Mul 865 793 864; Add 517 517 865; Mul 865 753 299; Mul 866 799 865; Sub 517 517 866; Mul 866 758 299;
  Mul 867 806 863; Mul 868 803 865; Add 867 867 868; Sub 866 866 867; Mul 866 802 866; Mul 867 806 866;
  Sub 517 517 867; Mul 867 801 863; Mul 868 803 864; Sub 867 867 868; Mul 868 764 299; Sub 867 867 868;
  Mul 867 802 867; Mul 868 801 867; Add 517 517 868; Add 851 851 857; Mul 851 805 851; Add 851 783 851;
  Mul 857 808 851; Mul 868 811 849; Sub 857 857 868; Mul 868 794 821; Mul 869 855 788; Add 868 868 869;
  Mul 869 852 808; Mul 870 840 822; Sub 869 869 870; Add 868 868 869; Sub 857 857 868; Mul 868 792 748;
  Mul 869 777 750; Add 868 868 869; Mul 869 847 743; Add 868 868 869; Mul 869 788 856; Mul 870 794 824;
  Sub 869 869 870; Add 868 868 869; Mul 868 45 868; Sub 857 857 868].
Definition casadi_f0_21 : list instruction := [
  Add 857 857 715; Mul 869 46 768; Mul 870 857 869; Sub 517 517 870; Mul 870 384 379; Mul 871 414 403;
  Add 870 870 871; Mul 871 454 433; Add 870 870 871; Mul 871 499 470; Add 870 870 871; Div 871 509 508;
  Mul 872 871 515; Add 870 870 872; Mul 872 304 378; Add 870 870 872; Mul 872 58 870; Mul 873 601 872;
  Add 517 517 873; Mul 873 67 870; Mul 874 615 873; Add 517 517 874; Mul 874 671 688; Mul 875 734 772;
  Sub 874 874 875; Mul 875 53 870; Mul 876 731 875; Add 874 874 876; Mul 876 691 874; Sub 517 517 876;
  Mul 876 669 688; Mul 877 737 772; Sub 876 876 877; Mul 877 735 875; Add 876 876 877; Mul 877 702 876;
  Sub 517 517 877; Mul 877 647 875; Add 517 517 877; Mul 877 0 688; Mul 878 0 772; Sub 877 877 878;
  Mul 878 0 875; Add 877 877 878; Mul 722 722 877; Sub 517 517 722; Mul 722 1 772; Mul 878 1 688;
  Sub 722 722 878; Mul 878 1 875; Sub 722 722 878; Mul 878 728 722; Sub 517 517 878; Mul 878 665 877;
  Add 878 773 878; Mul 879 672 722; Sub 878 878 879; Mul 878 323 878; Mul 879 74 100; Mul 880 104 34;
  Sub 879 879 880; Sub 879 137 879; Mul 879 44 879; Mul 880 879 516; Mul 881 623 99; Mul 882 626 42;
  Sub 881 881 882; Sub 881 551 881; Mul 881 624 881; Mul 882 881 598; Add 880 880 882; Sub 880 878 880;
  Mul 668 668 880; Add 517 517 668; Mul 668 55 870; Mul 882 731 668; Mul 883 734 819; Sub 882 882 883;
  Mul 883 820 882; Add 517 517 883; Mul 883 735 668; Mul 884 737 819; Sub 883 883 884; Mul 884 818 883;
  Add 517 517 884; Mul 884 791 668; Add 517 517 884; Mul 884 0 668; Mul 885 0 819; Sub 884 884 885;
  Mul 885 838 884; Add 517 517 885; Mul 885 1 819; Mul 886 1 668; Sub 885 885 886; Mul 886 862 885;
  Add 517 517 886; Mul 886 801 884; Add 886 846 886; Mul 887 803 885; Sub 886 886 887; Mul 886 802 886;
  Mul 887 879 518; Mul 888 881 584; Add 887 887 888; Mul 888 672 1; Mul 889 665 0; Add 888 888 889;
  Sub 888 679 888; Mul 888 323 888; Mul 889 888 710; Add 887 887 889; Sub 887 886 887; Mul 763 763 887;
  Sub 517 517 763; Lit 763 77619844000000005 17; Mul 889 45 754; Mul 890 763 889; Mul 891 278 91; Mul 892 264 0;
  Sub 891 891 892; Mul 892 890 891; Mul 893 278 28; Mul 894 264 1; Add 893 893 894; Mul 894 45 752;
  Mul 895 763 894; Mul 896 893 895; Sub 892 892 896; Mul 896 891 754; Mul 897 893 752; Sub 896 896 897;
  Mul 896 763 896; Mul 897 45 896; Add 898 892 897; Add 898 898 820; Mul 899 54 870; Mul 900 731 899;
  Mul 901 898 900; Sub 517 517 901; Mul 901 890 893; Mul 902 45 740; Mul 903 763 902; Mul 904 278 5;
  Sub 904 2 904; Mul 905 903 904; Add 905 901 905; Mul 906 893 890; Mul 907 904 903].
Definition casadi_f0_22 : list instruction := [
  Add 907 906 907; Sub 908 905 907; Add 908 908 818; Mul 909 735 899; Mul 910 908 909; Sub 517 517 910;
  Lit 910 (-15999999999999999) 22; Mul 911 910 4; Lit 912 (-70837400000000007) 19; Mul 913 912 5;
  Sub 911 911 913; Mul 913 911 91; Mul 914 276 5; Mul 915 914 0; Add 913 913 915; Mul 915 306 1;
  Sub 913 913 915; Add 915 913 799; Sub 916 891 803; Mul 917 263 916; Sub 918 904 806; Mul 919 917 918;
  Sub 915 915 919; Mul 919 915 753; Lit 920 (-7844460000000001) 18; Mul 921 912 28; Mul 922 276 1;
  Mul 923 910 31; Add 922 922 923; Add 921 921 922; Mul 922 921 28; Mul 923 276 28;
  Lit 924 (-76072000000000032) 20; Mul 925 924 1; Add 923 923 925; Mul 925 923 1; Add 922 922 925;
  Sub 920 920 922; Mul 925 911 5; Add 920 920 925; Add 920 920 284; Add 926 920 784; Sub 927 893 801;
  Sq 928 927; Sq 929 918; Add 930 928 929; Mul 930 263 930; Add 926 926 930; Mul 930 926 741; Mul 931 921 91;
  Mul 932 923 0; Sub 931 931 932; Add 932 931 793; Mul 933 917 927; Sub 932 932 933; Mul 933 932 745;
  Add 930 930 933; Sub 919 919 930; Lit 930 21499798428597569 17; Mul 933 930 893; Mul 934 273 801;
  Add 933 933 934; Mul 934 933 741; Mul 935 930 891; Mul 936 273 803; Add 935 935 936; Mul 936 935 745;
  Sub 934 934 936; Sub 934 764 934; Mul 934 260 934; Mul 936 933 934; Mul 937 930 904; Mul 938 273 806;
  Add 937 937 938; Mul 938 937 741; Mul 939 935 753; Add 938 938 939; Sub 938 938 758; Mul 938 260 938;
  Mul 939 937 938; Sub 936 936 939; Add 919 919 936; Mul 936 45 765; Mul 936 763 936; Mul 939 936 893;
  Mul 940 45 762; Mul 940 763 940; Mul 941 891 940; Sub 939 939 941; Mul 941 763 891; Mul 942 941 904;
  Sub 942 913 942; Mul 943 942 894; Sq 944 893; Sq 945 904; Add 946 944 945; Mul 946 763 946; Add 946 920 946;
  Mul 947 946 902; Sub 943 943 947; Sub 939 939 943; Mul 943 911 28; Mul 947 914 1; Sub 943 943 947;
  Mul 947 306 0; Sub 943 943 947; Mul 947 763 893; Mul 948 947 904; Sub 948 943 948; Mul 949 889 948;
  Add 922 922 284; Sq 950 891; Add 945 950 945; Mul 945 763 945; Add 945 922 945; Mul 951 902 945;
  Sub 949 949 951; Add 939 939 949; Mul 949 913 752; Mul 951 943 754; Add 949 949 951; Sub 284 284 925;
  Mul 925 284 740; Add 949 949 925; Mul 925 904 752; Mul 951 891 740; Sub 925 925 951; Sub 925 762 925;
  Mul 925 763 925; Mul 951 891 925; Mul 952 893 740; Mul 953 904 754; Sub 952 952 953; Add 952 765 952;
  Mul 952 763 952; Mul 953 893 952; Add 951 951 953; Add 949 949 951; Mul 949 45 949; Add 939 939 949;
  Add 939 939 850; Mul 951 939 1; Mul 953 940 893; Mul 954 893 940; Add 955 953 954; Mul 956 941 893;
  Sub 956 931 956; Mul 957 956 902; Mul 958 942 889].
Definition casadi_f0_23 : list instruction := [
  Sub 959 957 958; Sub 955 955 959; Mul 959 889 942; Mul 960 902 956; Sub 961 959 960; Add 955 955 961;
  Add 955 955 838; Mul 838 955 0; Sub 951 951 838; Mul 838 908 735; Sub 892 892 897; Add 892 892 826;
  Mul 961 892 731; Add 838 838 961; Sub 951 951 838; Add 919 919 951; Mul 951 919 899; Add 517 517 951;
  Mul 951 0 899; Mul 955 955 951; Sub 517 517 955; Mul 955 893 936; Mul 838 940 891; Sub 955 955 838;
  Mul 838 945 902; Mul 961 948 889; Sub 838 838 961; Sub 955 955 838; Mul 838 902 946; Mul 961 894 942;
  Sub 838 838 961; Add 955 955 838; Sub 955 955 949; Add 955 955 862; Mul 949 1 899; Mul 838 955 949;
  Add 517 517 838; Mul 838 933 951; Mul 961 935 949; Add 838 838 961; Mul 838 260 838; Mul 961 879 519;
  Mul 962 881 599; Add 961 961 962; Mul 962 888 732; Add 961 961 962; Mul 962 803 1; Mul 963 801 0;
  Add 962 962 963; Sub 962 962 729; Mul 962 802 962; Mul 963 962 299; Add 961 961 963; Sub 961 838 961;
  Mul 762 762 961; Add 517 517 762; Mul 762 936 904; Mul 963 946 889; Mul 964 956 894; Sub 963 963 964;
  Sub 762 762 963; Add 950 950 944; Mul 950 763 950; Add 950 284 950; Mul 944 889 950; Mul 963 902 948;
  Sub 944 944 963; Add 762 762 944; Mul 944 931 752; Mul 963 922 754; Add 944 944 963; Mul 963 943 740;
  Add 944 944 963; Mul 963 891 896; Mul 964 904 952; Sub 963 963 964; Add 944 944 963; Mul 944 45 944;
  Sub 762 762 944; Add 762 762 857; Mul 963 46 870; Mul 964 762 963; Add 517 517 964; Mul 964 680 723;
  Mul 965 689 708; Sub 964 964 965; Mul 965 642 711; Mul 966 692 639; Add 965 965 966; Mul 966 705 683;
  Mul 967 707 689; Sub 966 966 967; Add 965 965 966; Sub 964 964 965; Add 964 964 766; Add 964 964 596;
  Mul 766 387 379; Mul 965 417 403; Sub 766 766 965; Mul 965 451 433; Add 766 766 965; Mul 965 496 470;
  Add 766 766 965; Div 965 507 508; Mul 966 965 515; Add 766 766 966; Mul 966 201 378; Add 766 766 966;
  Mul 966 53 766; Mul 967 964 966; Add 517 517 967; Mul 967 135 100; Mul 968 104 132; Add 968 968 88;
  Sub 76 76 968; Mul 88 132 104; Add 88 88 85; Sub 86 86 88; Sub 76 76 86; Mul 86 76 34; Mul 85 74 82;
  Sub 85 181 85; Mul 969 72 83; Add 85 85 969; Mul 969 45 188; Add 970 85 969; Mul 971 970 24; Add 86 86 971;
  Add 967 967 86; Sub 967 606 967; Mul 86 967 182; Mul 971 100 106; Mul 972 34 76; Sub 85 85 969; Mul 973 24 85;
  Add 972 972 973; Add 971 971 972; Mul 972 971 516; Mul 973 99 541; Mul 974 540 546; Add 974 974 536;
  Sub 527 527 974; Mul 536 546 540; Add 536 536 533; Sub 534 534 536; Sub 527 527 534; Add 527 527 76;
  Mul 534 42 527; Mul 533 526 530].
Definition casadi_f0_24 : list instruction := [
  Sub 533 589 533; Mul 975 524 531; Add 533 533 975; Mul 975 45 592; Sub 976 533 975; Add 976 976 85;
  Mul 977 20 976; Add 534 534 977; Add 973 973 534; Mul 534 973 598; Add 972 972 534; Sub 86 86 972;
  Mul 972 549 99; Mul 534 527 42; Add 533 533 975; Add 533 533 970; Mul 977 533 20; Add 534 534 977;
  Add 972 972 534; Sub 972 631 972; Mul 534 972 628; Add 86 86 534; Mul 534 639 681; Add 534 534 701;
  Sub 696 696 534; Mul 701 681 639; Add 701 701 698; Sub 699 699 701; Sub 696 696 699; Add 696 696 527;
  Mul 699 696 1; Mul 698 691 0; Sub 699 699 698; Add 699 675 699; Mul 698 699 688; Add 86 86 698;
  Mul 691 691 738; Sub 86 86 691; Mul 691 696 739; Sub 86 86 691; Sub 86 86 755; Mul 691 655 684;
  Sub 691 711 691; Mul 698 690 642; Add 691 691 698; Mul 698 45 714; Add 977 691 698; Add 977 977 533;
  Mul 978 977 767; Add 86 86 978; Mul 978 695 877; Sub 86 86 978; Mul 978 696 722; Sub 86 86 978;
  Mul 978 644 880; Sub 86 86 978; Sub 691 691 698; Add 691 691 976; Mul 978 691 966; Add 86 86 978;
  Mul 978 674 722; Add 978 876 978; Mul 979 665 966; Add 978 978 979; Mul 978 323 978; Mul 979 83 34;
  Mul 980 74 24; Sub 979 979 980; Sub 979 35 979; Mul 979 44 979; Mul 980 979 516; Mul 981 629 42;
  Mul 982 623 20; Sub 981 981 982; Sub 981 520 981; Mul 981 624 981; Mul 982 981 598; Add 980 980 982;
  Sub 980 978 980; Mul 982 659 980; Add 86 86 982; Mul 982 11 86; Add 517 517 982; Mul 982 100 140;
  Mul 983 82 74; Mul 984 83 72; Add 984 181 984; Sub 983 983 984; Add 984 983 969; Mul 985 34 984;
  Sub 84 84 968; Sub 87 87 88; Sub 84 84 87; Mul 87 24 84; Add 985 985 87; Add 982 982 985; Mul 985 982 516;
  Mul 87 99 554; Mul 88 530 526; Mul 968 531 524; Add 968 589 968; Sub 88 88 968; Add 968 88 975;
  Add 968 968 984; Mul 986 42 968; Sub 532 532 974; Sub 535 535 536; Sub 532 532 535; Add 532 532 84;
  Mul 535 20 532; Add 986 986 535; Add 87 87 986; Mul 986 87 598; Add 985 985 986; Mul 986 143 100;
  Sub 983 983 969; Mul 969 983 34; Mul 535 84 24; Add 969 969 535; Add 986 986 969; Sub 986 604 986;
  Mul 969 986 182; Sub 985 985 969; Mul 969 557 99; Sub 88 88 975; Add 88 88 983; Mul 975 88 42; Mul 535 532 20;
  Add 975 975 535; Add 969 969 975; Sub 969 627 969; Mul 975 969 628; Sub 985 985 975; Mul 975 684 655;
  Mul 535 642 690; Add 535 711 535; Sub 975 975 535; Sub 535 975 698; Add 535 535 88; Mul 536 535 1;
  Mul 974 682 0; Sub 536 536 974; Add 536 670 536; Mul 974 536 688; Sub 985 985 974; Mul 682 682 738;
  Add 985 985 682; Mul 682 535 739; Add 985 985 682].
Definition casadi_f0_25 : list instruction := [
  Add 985 985 759; Sub 697 697 534; Sub 700 700 701; Sub 697 697 700; Add 697 697 532; Mul 700 697 767;
  Sub 985 985 700; Mul 700 687 877; Add 985 985 700; Add 975 975 698; Add 975 975 968; Mul 698 975 722;
  Add 985 985 698; Mul 698 697 966; Sub 985 985 698; Mul 698 646 980; Add 985 985 698; Mul 698 104 24;
  Mul 700 83 100; Sub 698 698 700; Sub 698 103 698; Mul 698 44 698; Mul 700 698 516; Mul 701 626 20;
  Mul 534 629 99; Sub 701 701 534; Sub 701 539 701; Mul 701 624 701; Mul 534 701 598; Add 700 700 534;
  Mul 534 674 877; Sub 534 874 534; Mul 682 672 966; Sub 534 534 682; Mul 534 323 534; Sub 700 700 534;
  Mul 682 644 700; Add 985 985 682; Mul 682 38 985; Add 517 517 682; Mul 682 676 700; Add 517 517 682;
  Mul 682 83 979; Mul 974 104 879; Sub 682 682 974; Mul 974 153 100; Mul 987 172 34; Add 974 974 987;
  Mul 987 185 24; Add 974 974 987; Sub 682 682 974; Mul 974 682 516; Mul 987 629 981; Mul 988 626 881;
  Sub 987 987 988; Mul 988 616 99; Add 989 582 172; Sq 990 617; Add 613 990 613; Mul 613 171 613;
  Add 989 989 613; Mul 613 989 42; Add 988 988 613; Add 613 593 185; Mul 991 171 610; Mul 992 991 612;
  Sub 613 613 992; Mul 992 613 20; Add 988 988 992; Sub 987 987 988; Mul 988 987 598; Add 974 974 988;
  Mul 988 663 877; Sub 974 974 988; Mul 988 672 878; Add 974 974 988; Add 988 650 989; Sq 992 640;
  Add 658 992 658; Mul 658 221 658; Add 988 988 658; Mul 658 988 722; Sub 974 974 658; Mul 658 674 978;
  Sub 974 974 658; Add 658 703 613; Mul 993 221 656; Mul 994 993 643; Sub 658 658 994; Mul 994 658 966;
  Add 974 974 994; Mul 994 659 974; Add 517 517 994; Mul 994 638 877; Mul 995 104 698; Mul 996 74 979;
  Sub 995 995 996; Mul 996 164 100; Mul 997 185 34; Add 996 996 997; Mul 997 174 24; Add 996 996 997;
  Sub 995 995 996; Mul 996 995 516; Mul 997 626 701; Mul 998 623 981; Sub 997 997 998; Mul 998 620 99;
  Mul 999 613 42; Add 998 998 999; Add 999 583 174; Add 990 990 611; Mul 990 171 990; Add 999 999 990;
  Mul 990 999 20; Add 998 998 990; Sub 997 997 998; Mul 998 997 598; Add 996 996 998; Sub 994 994 996;
  Mul 996 658 722; Add 994 994 996; Mul 996 665 978; Sub 994 994 996; Mul 996 672 534; Add 994 994 996;
  Add 996 653 999; Add 992 992 657; Mul 992 221 992; Add 996 996 992; Mul 992 996 966; Sub 994 994 992;
  Mul 992 646 994; Add 517 517 992; Mul 992 822 840; Mul 657 808 852; Sub 992 992 657; Mul 657 788 855;
  Mul 998 821 794; Add 657 657 998; Mul 998 849 811; Mul 990 851 808; Sub 998 998 990; Add 657 657 998;
  Sub 992 992 657; Add 992 992 868; Add 992 992 964; Mul 868 55 766; Mul 657 992 868].
Definition casadi_f0_26 : list instruction := [
  Sub 517 517 657; Mul 657 971 518; Mul 998 973 584; Add 657 657 998; Mul 998 1 696; Mul 695 0 695;
  Sub 998 998 695; Mul 695 998 710; Sub 657 657 695; Mul 695 967 770; Sub 657 657 695; Mul 695 972 771;
  Sub 657 657 695; Mul 695 699 772; Sub 657 657 695; Mul 695 820 0; Mul 990 794 823; Add 990 990 817;
  Sub 810 810 990; Mul 817 823 794; Add 817 817 814; Sub 815 815 817; Sub 810 810 815; Add 810 810 696;
  Mul 815 810 1; Sub 695 695 815; Add 695 807 695; Mul 815 695 819; Sub 657 657 815; Mul 820 820 861;
  Add 657 657 820; Mul 820 810 854; Sub 657 657 820; Add 657 657 866; Mul 820 785 812; Sub 820 855 820;
  Mul 815 809 788; Add 820 820 815; Mul 815 45 856; Add 814 820 815; Add 814 814 977; Mul 611 814 869;
  Sub 657 657 611; Mul 611 826 884; Add 657 657 611; Mul 611 810 885; Add 657 657 611; Mul 611 748 887;
  Add 657 657 611; Sub 820 820 815; Add 820 820 691; Mul 611 820 868; Sub 657 657 611; Mul 611 806 885;
  Add 611 883 611; Mul 1000 801 868; Add 611 611 1000; Mul 611 802 611; Mul 1000 979 518; Mul 1001 981 584;
  Add 1000 1000 1001; Mul 1001 674 1; Sub 1001 1001 669; Mul 1001 323 1001; Mul 1002 1001 710;
  Add 1000 1000 1002; Sub 1000 611 1000; Mul 1002 743 1000; Sub 657 657 1002; Mul 1002 6 657; Add 517 517 1002;
  Mul 1002 1 975; Mul 687 0 687; Sub 1002 1002 687; Mul 687 1002 710; Mul 1003 982 518; Mul 1004 87 584;
  Add 1003 1003 1004; Sub 687 687 1003; Mul 1003 986 770; Add 687 687 1003; Mul 1003 969 771; Add 687 687 1003;
  Mul 1003 536 772; Add 687 687 1003; Mul 1003 829 0; Mul 1004 812 785; Mul 1005 788 809; Add 1005 855 1005;
  Sub 1004 1004 1005; Sub 1005 1004 815; Add 1005 1005 535; Mul 1006 1005 1; Sub 1003 1003 1006;
  Add 1003 804 1003; Mul 1006 1003 819; Add 687 687 1006; Mul 829 829 861; Sub 687 687 829; Mul 829 1005 854;
  Add 687 687 829; Sub 687 687 867; Sub 813 813 990; Sub 816 816 817; Sub 813 813 816; Add 813 813 697;
  Mul 816 813 869; Add 687 687 816; Mul 832 832 884; Sub 687 687 832; Add 1004 1004 815; Add 1004 1004 975;
  Mul 815 1004 885; Sub 687 687 815; Mul 815 813 868; Add 687 687 815; Mul 815 750 1000; Sub 687 687 815;
  Mul 815 806 884; Sub 815 882 815; Mul 832 803 868; Sub 815 815 832; Mul 815 802 815; Mul 832 698 518;
  Mul 816 701 584; Add 832 832 816; Mul 816 674 0; Sub 816 816 671; Mul 816 323 816; Mul 817 816 710;
  Add 832 832 817; Sub 832 815 832; Mul 817 748 832; Add 687 687 817; Mul 817 36 687; Add 517 517 817;
  Mul 817 756 832; Add 517 517 817; Mul 817 995 518; Mul 990 997 584; Add 817 817 990; Mul 990 658 1;
  Mul 829 638 0; Sub 990 990 829; Mul 829 672 816; Mul 1006 665 1001; Sub 829 829 1006; Add 990 990 829;
  Mul 829 990 710].
Definition casadi_f0_27 : list instruction := [
  Add 817 817 829; Mul 829 799 884; Sub 817 817 829; Add 829 847 658; Mul 1006 246 786; Mul 1007 1006 789;
  Sub 829 829 1007; Mul 1007 829 885; Sub 817 817 1007; Mul 1007 801 611; Add 817 817 1007; Mul 1007 803 815;
  Sub 817 817 1007; Add 1007 783 996; Sq 1008 795; Add 787 1008 787; Mul 787 246 787; Add 1007 1007 787;
  Mul 787 1007 868; Add 817 817 787; Mul 787 750 817; Add 517 517 787; Mul 787 793 884; Mul 1009 682 518;
  Mul 1010 987 584; Add 1009 1009 1010; Mul 1010 988 1; Mul 1011 663 0; Sub 1010 1010 1011; Mul 1011 674 1001;
  Mul 1012 672 888; Sub 1011 1011 1012; Add 1010 1010 1011; Mul 1011 1010 710; Add 1009 1009 1011;
  Sub 787 787 1009; Mul 1009 803 886; Sub 787 787 1009; Add 1009 777 988; Add 1008 1008 790; Mul 1008 246 1008;
  Add 1009 1009 1008; Mul 1008 1009 885; Add 787 787 1008; Mul 1008 806 611; Add 787 787 1008; Mul 1008 829 868;
  Sub 787 787 1008; Mul 1008 743 787; Add 517 517 1008; Mul 1008 904 936; Mul 790 948 902; Mul 1011 950 889;
  Sub 790 790 1011; Sub 1008 1008 790; Mul 790 894 956; Mul 1011 889 946; Sub 790 790 1011; Add 1008 1008 790;
  Add 1008 1008 944; Add 1008 1008 992; Mul 944 54 766; Mul 790 1008 944; Add 517 517 790; Mul 790 1 742;
  Mul 1011 0 746; Sub 790 790 1011; Mul 1011 664 877; Sub 790 790 1011; Mul 1011 660 722; Sub 790 790 1011;
  Mul 1011 0 864; Mul 1012 1 863; Sub 1011 1011 1012; Mul 1012 747 884; Add 1011 1011 1012; Mul 1012 744 885;
  Add 1011 1011 1012; Mul 1012 741 949; Mul 1013 745 951; Sub 1012 1012 1013; Add 1011 1011 1012;
  Add 790 790 1011; Mul 1013 0 966; Mul 1014 0 944; Mul 1015 0 868; Sub 1015 1014 1015; Add 1013 1013 1015;
  Mul 1016 0 767; Mul 1017 0 963; Mul 1018 0 869; Sub 1018 1017 1018; Add 1016 1016 1018; Sub 1019 1013 1016;
  Mul 1019 45 1019; Mul 1020 644 1019; Add 1020 790 1020; Mul 1021 1 869; Mul 1022 1 963; Sub 1021 1021 1022;
  Mul 1023 1 767; Sub 1023 1021 1023; Mul 1024 1 868; Mul 1025 1 944; Sub 1024 1024 1025; Mul 1026 1 966;
  Sub 1026 1024 1026; Sub 1027 1023 1026; Mul 1027 45 1027; Mul 1028 646 1027; Add 1020 1020 1028;
  Mul 1028 1 739; Mul 1029 1 722; Add 1028 1028 1029; Mul 1029 1 854; Mul 1030 1 885; Sub 1029 1029 1030;
  Mul 1030 1 949; Sub 1029 1029 1030; Add 1028 1028 1029; Mul 1031 683 1028; Mul 1032 0 861; Mul 1033 0 884;
  Add 1032 1032 1033; Mul 1033 0 951; Sub 1032 1032 1033; Mul 1034 0 738; Mul 1035 0 877; Add 1034 1034 1035;
  Sub 1034 1032 1034; Mul 1035 683 1034; Add 1035 1035 1035; Sub 1035 1031 1035; Add 1035 1035 1031;
  Mul 1031 680 1016; Add 1035 1035 1031; Mul 1031 689 1023; Sub 1035 1035 1031; Mul 1031 680 1013;
  Add 1035 1035 1031; Mul 1031 689 1026; Sub 1035 1035 1031; Add 1020 1020 1035; Mul 1031 651 1020;
  Sub 517 517 1031; Sub 1031 1015 1018; Mul 1031 45 1031; Mul 1036 748 1031; Add 1036 1011 1036].
Definition casadi_f0_28 : list instruction := [
  Sub 1037 1021 1024; Mul 1037 45 1037; Mul 1038 750 1037; Add 1036 1036 1038; Mul 1038 811 1029;
  Mul 1039 811 1032; Add 1039 1039 1039; Sub 1039 1038 1039; Add 1039 1039 1038; Mul 1038 822 1018;
  Add 1039 1039 1038; Mul 1038 808 1021; Sub 1039 1039 1038; Mul 1038 822 1015; Add 1039 1039 1038;
  Mul 1038 808 1024; Sub 1039 1039 1038; Add 1036 1036 1039; Mul 1038 779 1036; Sub 517 517 1038;
  Sub 1038 1014 1017; Mul 1038 45 1038; Mul 1040 752 1038; Add 1040 1012 1040; Sub 1041 1025 1022;
  Mul 1041 45 1041; Mul 1042 754 1041; Add 1040 1040 1042; Mul 1042 902 1033; Add 1042 1042 1042;
  Mul 1043 902 1030; Sub 1042 1042 1043; Sub 1042 1042 1043; Mul 1043 894 1017; Add 1042 1042 1043;
  Mul 1043 889 1022; Add 1042 1042 1043; Mul 1043 894 1014; Add 1042 1042 1043; Mul 1043 889 1025;
  Add 1042 1042 1043; Add 1040 1040 1042; Mul 1043 923 1040; Sub 517 517 1043; Mul 1043 998 732;
  Mul 1044 971 519; Mul 1045 973 599; Add 1044 1044 1045; Sub 1043 1043 1044; Mul 826 0 826; Mul 1044 1 810;
  Sub 826 826 1044; Mul 1044 826 299; Add 1043 1043 1044; Mul 1044 967 872; Add 1043 1043 1044;
  Mul 1044 972 873; Add 1043 1043 1044; Mul 1044 699 875; Add 1043 1043 1044; Mul 1044 695 668;
  Add 1043 1043 1044; Mul 1044 891 895; Add 1044 1044 907; Sub 901 901 1044; Mul 1044 895 891;
  Add 1044 1044 905; Sub 906 906 1044; Sub 901 901 906; Add 901 901 810; Mul 906 901 1; Mul 898 898 0;
  Sub 906 906 898; Add 906 938 906; Mul 898 906 899; Add 1043 1043 898; Mul 892 892 951; Sub 1043 1043 892;
  Mul 892 901 949; Add 1043 1043 892; Mul 892 752 961; Sub 1043 1043 892; Mul 892 890 904; Mul 898 893 903;
  Add 898 936 898; Sub 892 892 898; Mul 898 45 952; Sub 1044 892 898; Add 1044 1044 814; Mul 905 1044 963;
  Add 1043 1043 905; Add 892 892 898; Add 892 892 820; Mul 898 892 944; Add 1043 1043 898; Mul 898 937 949;
  Sub 898 909 898; Mul 905 933 944; Add 898 898 905; Mul 898 260 898; Mul 905 979 519; Mul 907 981 599;
  Add 905 905 907; Mul 907 1001 732; Add 905 905 907; Mul 907 806 1; Sub 907 737 907; Mul 907 802 907;
  Mul 1045 907 299; Add 905 905 1045; Sub 905 898 905; Mul 1045 740 905; Add 1043 1043 1045; Mul 1043 2 1043;
  Add 517 517 1043; Mul 1043 682 519; Mul 1045 987 599; Add 1043 1043 1045; Mul 1045 1010 732;
  Add 1043 1043 1045; Mul 1045 793 0; Mul 1046 1009 1; Sub 1045 1045 1046; Mul 1046 806 907; Mul 1047 803 962;
  Sub 1046 1046 1047; Add 1045 1045 1046; Mul 1046 1045 299; Add 1043 1043 1046; Mul 1046 932 951;
  Sub 1043 1043 1046; Mul 1046 935 838; Add 1043 1043 1046; Add 1046 922 1009; Sq 1047 916; Add 929 1047 929;
  Mul 929 263 929; Add 1046 1046 929; Mul 929 1046 949; Add 1043 1043 929; Mul 929 937 898; Sub 1043 1043 929;
  Add 929 943 829; Mul 1048 263 927; Mul 1049 1048 918; Sub 929 929 1049; Mul 1049 929 944; Add 1043 1043 1049;
  Mul 1049 740 1043].
Definition casadi_f0_29 : list instruction := [
  Add 517 517 1049; Mul 1049 915 951; Mul 1050 995 519; Mul 1051 997 599; Add 1050 1050 1051; Mul 1051 990 732;
  Add 1050 1050 1051; Mul 1051 799 0; Mul 1052 829 1; Sub 1051 1051 1052; Mul 1052 806 0; Sub 1052 734 1052;
  Mul 1052 802 1052; Mul 1053 803 1052; Mul 1054 801 907; Sub 1053 1053 1054; Add 1051 1051 1053;
  Mul 1053 1051 299; Add 1050 1050 1053; Sub 1049 1049 1050; Mul 1050 929 949; Sub 1049 1049 1050;
  Mul 1050 933 898; Sub 1049 1049 1050; Mul 1050 937 951; Sub 1050 900 1050; Mul 1053 935 944;
  Sub 1050 1050 1053; Mul 1050 260 1050; Mul 1053 935 1050; Add 1049 1049 1053; Add 1053 284 1007;
  Add 1047 1047 928; Mul 1047 263 1047; Add 1053 1053 1047; Mul 1047 1053 944; Sub 1049 1049 1047;
  Mul 1047 754 1049; Add 517 517 1047; Mul 1047 67 380; Mul 928 971 1047; Mul 1054 58 580; Mul 1055 967 1054;
  Sub 928 928 1055; Mul 1055 67 580; Mul 1056 972 1055; Sub 928 928 1056; Mul 1056 0 598; Mul 1057 0 584;
  Sub 1056 1056 1057; Mul 1057 0 599; Add 1056 1056 1057; Mul 1057 549 1056; Add 928 928 1057; Mul 1057 1 584;
  Mul 1058 1 598; Sub 1057 1057 1058; Mul 1058 1 599; Sub 1057 1057 1058; Mul 1058 527 1057; Add 928 928 1058;
  Mul 1058 677 598; Mul 1059 757 584; Sub 1058 1058 1059; Mul 1059 660 598; Mul 1060 744 584;
  Sub 1059 1059 1060; Mul 1060 741 599; Add 1059 1059 1060; Mul 1060 629 1059; Sub 1058 1058 1060;
  Mul 1060 749 584; Mul 1061 645 598; Sub 1060 1060 1061; Mul 1061 753 599; Sub 1060 1060 1061;
  Mul 1061 626 1060; Add 1058 1058 1061; Mul 1061 758 599; Add 1058 1058 1061; Mul 1058 624 1058;
  Add 928 928 1058; Mul 1061 46 580; Mul 1062 533 1061; Sub 928 928 1062; Mul 1062 99 1055; Mul 1063 0 628;
  Add 1062 1062 1063; Mul 1063 0 771; Sub 1062 1062 1063; Mul 1063 0 873; Add 1062 1062 1063; Mul 1063 541 1062;
  Add 928 928 1063; Mul 1063 42 1055; Mul 1064 1 628; Sub 1063 1063 1064; Mul 1064 1 771; Add 1063 1063 1064;
  Mul 1064 1 873; Sub 1063 1063 1064; Mul 1064 527 1063; Add 928 928 1064; Mul 1064 729 771; Mul 1065 551 1055;
  Mul 1066 679 628; Add 1065 1065 1066; Sub 1064 1064 1065; Mul 1065 623 1062; Add 1065 1064 1065;
  Mul 1066 626 1063; Sub 1065 1065 1066; Mul 1065 624 1065; Mul 1066 879 1047; Sub 1066 1065 1066;
  Mul 1067 544 1066; Add 928 928 1067; Mul 1067 20 1055; Mul 1068 67 766; Sub 1067 1067 1068; Mul 1068 976 1067;
  Add 928 928 1068; Mul 1068 669 628; Mul 1069 520 1055; Sub 1068 1068 1069; Mul 1069 737 771;
  Sub 1068 1068 1069; Mul 1069 735 873; Add 1068 1068 1069; Mul 1069 629 1063; Add 1069 1068 1069;
  Mul 1070 623 1067; Sub 1069 1069 1070; Mul 1069 624 1069; Mul 1070 979 1047; Sub 1070 1069 1070;
  Mul 1071 528 1070; Sub 928 928 1071; Mul 1071 20 928; Mul 1072 982 1047; Mul 1073 986 1054;
  Sub 1072 1072 1073; Mul 1073 969 1055; Sub 1072 1072 1073; Mul 1073 557 1056; Add 1072 1072 1073;
  Mul 1073 88 1057; Add 1072 1072 1073; Mul 1073 623 1059].
Definition casadi_f0_30 : list instruction := [
  Mul 1074 667 598; Mul 1075 760 584; Add 1074 1074 1075; Sub 1073 1073 1074; Mul 1074 664 598;
  Mul 1075 747 584; Sub 1074 1074 1075; Mul 1075 745 599; Add 1074 1074 1075; Mul 1075 626 1074;
  Sub 1073 1073 1075; Mul 1075 764 599; Sub 1073 1073 1075; Mul 1073 624 1073; Add 1072 1072 1073;
  Mul 1075 532 1061; Sub 1072 1072 1075; Mul 1075 554 1062; Add 1072 1072 1075; Mul 1075 968 1063;
  Add 1072 1072 1075; Mul 1075 532 1067; Add 1072 1072 1075; Mul 1075 522 1070; Add 1072 1072 1075;
  Mul 1075 671 628; Mul 1076 539 1055; Sub 1075 1075 1076; Mul 1076 734 771; Sub 1075 1075 1076;
  Mul 1076 731 873; Add 1075 1075 1076; Mul 1076 629 1062; Sub 1076 1075 1076; Mul 1077 626 1067;
  Add 1076 1076 1077; Mul 1076 624 1076; Mul 1077 698 1047; Sub 1077 1076 1077; Mul 1078 544 1077;
  Sub 1072 1072 1078; Mul 1078 42 1072; Sub 1071 1071 1078; Mul 1078 99 1047; Mul 1079 0 516;
  Add 1078 1078 1079; Mul 1079 0 518; Sub 1078 1078 1079; Mul 1079 0 519; Add 1078 1078 1079; Mul 1079 135 1078;
  Mul 1080 58 380; Mul 1081 967 1080; Sub 1079 1079 1081; Mul 1081 42 1047; Mul 1082 1 516; Sub 1081 1081 1082;
  Mul 1082 1 518; Add 1081 1081 1082; Mul 1082 1 519; Sub 1081 1081 1082; Mul 1082 76 1081; Add 1079 1079 1082;
  Mul 1082 677 516; Mul 1083 630 1047; Sub 1082 1082 1083; Mul 1083 757 518; Sub 1082 1082 1083;
  Mul 1083 660 516; Mul 1084 614 1047; Sub 1083 1083 1084; Mul 1084 744 518; Sub 1083 1083 1084;
  Mul 1084 741 519; Add 1083 1083 1084; Mul 1084 83 1083; Sub 1082 1082 1084; Mul 1084 749 518;
  Mul 1085 621 1047; Mul 1086 645 516; Add 1085 1085 1086; Sub 1084 1084 1085; Mul 1085 753 519;
  Sub 1084 1084 1085; Mul 1085 104 1084; Add 1082 1082 1085; Mul 1085 758 519; Add 1082 1082 1085;
  Mul 1082 44 1082; Add 1079 1079 1082; Mul 1085 20 1047; Mul 1086 46 380; Sub 1085 1085 1086;
  Mul 1086 970 1085; Add 1079 1079 1086; Mul 1086 100 1080; Mul 1087 99 1054; Add 1086 1086 1087;
  Mul 1087 0 182; Add 1086 1086 1087; Mul 1087 0 770; Sub 1086 1086 1087; Mul 1087 0 872; Add 1086 1086 1087;
  Mul 1087 106 1086; Add 1079 1079 1087; Mul 1087 34 1080; Mul 1088 42 1054; Add 1087 1087 1088; Mul 1088 1 182;
  Sub 1087 1087 1088; Mul 1088 1 770; Add 1087 1087 1088; Mul 1088 1 872; Sub 1087 1087 1088; Mul 1088 76 1087;
  Add 1079 1079 1088; Mul 1088 729 770; Mul 1089 137 1080; Mul 1090 551 1054; Add 1089 1089 1090;
  Mul 1090 679 182; Add 1089 1089 1090; Sub 1088 1088 1089; Mul 1089 74 1086; Add 1089 1088 1089;
  Mul 1090 104 1087; Sub 1089 1089 1090; Mul 1089 44 1089; Mul 1090 130 1089; Add 1079 1079 1090;
  Mul 1090 24 1080; Mul 1091 20 1054; Add 1090 1090 1091; Mul 1091 58 766; Sub 1090 1090 1091; Mul 1091 85 1090;
  Add 1079 1079 1091; Mul 1091 669 182; Mul 1092 35 1080; Mul 1093 520 1054; Add 1092 1092 1093;
  Sub 1091 1091 1092; Mul 1092 737 770; Sub 1091 1091 1092; Mul 1092 735 872; Add 1091 1091 1092;
  Mul 1092 83 1087; Add 1092 1091 1092].
Definition casadi_f0_31 : list instruction := [
  Mul 1093 74 1090; Sub 1092 1092 1093; Mul 1092 44 1092; Mul 1093 78 1092; Sub 1079 1079 1093;
  Mul 1093 24 1079; Mul 1094 143 1078; Mul 1095 986 1080; Sub 1094 1094 1095; Mul 1095 983 1081;
  Add 1094 1094 1095; Mul 1095 74 1083; Mul 1096 625 1047; Mul 1097 667 516; Add 1096 1096 1097;
  Mul 1097 760 518; Add 1096 1096 1097; Sub 1095 1095 1096; Mul 1096 664 516; Mul 1097 619 1047;
  Sub 1096 1096 1097; Mul 1097 747 518; Sub 1096 1096 1097; Mul 1097 745 519; Add 1096 1096 1097;
  Mul 1097 104 1096; Sub 1095 1095 1097; Mul 1097 764 519; Sub 1095 1095 1097; Mul 1095 44 1095;
  Add 1094 1094 1095; Mul 1097 84 1085; Add 1094 1094 1097; Mul 1097 140 1086; Add 1094 1094 1097;
  Mul 1097 984 1087; Add 1094 1094 1097; Mul 1097 84 1090; Add 1094 1094 1097; Mul 1097 60 1092;
  Add 1094 1094 1097; Mul 1097 671 182; Mul 1098 103 1080; Mul 1099 539 1054; Add 1098 1098 1099;
  Sub 1097 1097 1098; Mul 1098 734 770; Sub 1097 1097 1098; Mul 1098 731 872; Add 1097 1097 1098;
  Mul 1098 83 1086; Sub 1098 1097 1098; Mul 1099 104 1090; Add 1098 1098 1099; Mul 1098 44 1098;
  Mul 1099 130 1098; Sub 1094 1094 1099; Mul 1099 34 1094; Sub 1093 1093 1099; Mul 1099 100 1089;
  Mul 1100 24 1092; Sub 1099 1099 1100; Mul 1100 1 877; Mul 1101 0 739; Sub 1100 1100 1101; Mul 1101 1 951;
  Mul 1102 0 854; Mul 1103 1 884; Add 1102 1102 1103; Sub 1102 1101 1102; Add 1100 1100 1102; Mul 1103 99 1057;
  Mul 1104 42 1062; Add 1103 1103 1104; Sub 1103 1100 1103; Mul 1104 100 1081; Mul 1105 34 1086;
  Add 1104 1104 1105; Sub 1104 1103 1104; Mul 1105 1 738; Mul 1106 0 722; Sub 1105 1105 1106; Mul 1106 0 885;
  Mul 1107 1 861; Sub 1106 1106 1107; Mul 1107 0 949; Add 1106 1106 1107; Add 1105 1105 1106; Mul 1108 42 1056;
  Mul 1109 99 1063; Add 1108 1108 1109; Sub 1108 1105 1108; Mul 1109 34 1078; Mul 1110 100 1087;
  Add 1109 1109 1110; Sub 1109 1108 1109; Sub 1110 1104 1109; Mul 1110 45 1110; Mul 1111 104 1110;
  Mul 1112 137 1078; Mul 1113 100 1088; Sub 1112 1112 1113; Mul 1113 551 1056; Mul 1114 99 1064;
  Sub 1113 1113 1114; Mul 1114 679 738; Mul 1115 0 773; Sub 1114 1114 1115; Mul 1115 0 846; Mul 1116 729 861;
  Sub 1115 1115 1116; Add 1114 1114 1115; Add 1113 1113 1114; Add 1112 1112 1113; Mul 1116 551 1047;
  Mul 1117 679 516; Add 1116 1116 1117; Mul 1117 729 518; Sub 1116 1116 1117; Mul 1117 100 1116;
  Mul 1118 137 1086; Add 1117 1117 1118; Mul 1118 679 598; Mul 1119 729 584; Sub 1118 1118 1119;
  Mul 1119 99 1118; Mul 1120 551 1062; Add 1119 1119 1120; Mul 1120 679 877; Mul 1121 0 730; Sub 1120 1120 1121;
  Mul 1121 729 884; Sub 1120 1120 1121; Add 1119 1119 1120; Add 1117 1117 1119; Sub 1122 1112 1117;
  Mul 1123 35 1085; Mul 1124 24 1091; Sub 1123 1123 1124; Mul 1124 669 767; Mul 1125 735 963; Mul 1126 737 869;
  Sub 1126 1125 1126; Add 1124 1124 1126; Mul 1127 520 1061; Mul 1128 20 1068; Add 1127 1127 1128;
  Sub 1127 1124 1127; Add 1123 1123 1127].
Definition casadi_f0_32 : list instruction := [
  Sub 1122 1122 1123; Mul 1128 520 1047; Mul 1129 669 516; Sub 1128 1128 1129; Mul 1129 737 518;
  Add 1128 1128 1129; Mul 1129 735 519; Sub 1128 1128 1129; Mul 1129 24 1128; Mul 1130 35 1090;
  Add 1129 1129 1130; Mul 1130 737 584; Mul 1131 669 598; Sub 1130 1130 1131; Mul 1131 735 599;
  Sub 1130 1130 1131; Mul 1131 20 1130; Mul 1132 520 1067; Add 1131 1131 1132; Mul 1132 669 966;
  Mul 1133 735 944; Mul 1134 737 868; Sub 1134 1133 1134; Add 1132 1132 1134; Add 1131 1131 1132;
  Add 1129 1129 1131; Add 1122 1122 1129; Mul 1122 45 1122; Add 1111 1111 1122; Mul 1122 42 1061;
  Mul 1135 20 1063; Sub 1122 1122 1135; Add 1122 1122 1023; Mul 1135 34 1085; Mul 1136 24 1087;
  Add 1135 1135 1136; Sub 1135 1122 1135; Mul 1136 20 1057; Mul 1137 42 1067; Add 1136 1136 1137;
  Sub 1136 1026 1136; Mul 1137 24 1081; Mul 1138 34 1090; Add 1137 1137 1138; Sub 1137 1136 1137;
  Sub 1138 1135 1137; Mul 1138 45 1138; Mul 1139 83 1138; Sub 1111 1111 1139; Mul 1111 44 1111;
  Add 1099 1099 1111; Add 1112 1112 1117; Mul 1117 104 1104; Sub 1117 1112 1117; Mul 1139 104 1109;
  Sub 1117 1117 1139; Mul 1139 42 1057; Mul 1140 42 1063; Add 1139 1139 1140; Sub 1139 1028 1139;
  Mul 1140 34 1081; Mul 1141 34 1087; Add 1140 1140 1141; Sub 1140 1139 1140; Mul 1141 74 1140;
  Sub 1117 1117 1141; Sub 1117 1117 1141; Mul 1141 83 1135; Sub 1117 1117 1141; Add 1123 1123 1129;
  Sub 1117 1117 1123; Mul 1129 83 1137; Sub 1117 1117 1129; Mul 1129 99 1056; Mul 1141 99 1062;
  Add 1129 1129 1141; Sub 1129 1034 1129; Mul 1141 100 1078; Mul 1142 100 1086; Add 1141 1141 1142;
  Sub 1141 1129 1141; Mul 1142 20 1061; Mul 1143 20 1067; Sub 1142 1142 1143; Mul 1143 46 766;
  Sub 1142 1142 1143; Mul 1144 24 1085; Mul 1145 24 1090; Add 1144 1144 1145; Sub 1144 1142 1144;
  Add 1145 1140 1144; Add 1146 1141 1145; Mul 1147 74 1146; Add 1117 1117 1147; Add 1117 1117 1147;
  Mul 1117 44 1117; Mul 1117 45 1117; Add 1099 1099 1117; Mul 1117 78 1099; Sub 1093 1093 1117;
  Mul 1117 34 1092; Mul 1147 100 1098; Sub 1117 1117 1147; Mul 1147 35 1081; Mul 1148 34 1091;
  Sub 1147 1147 1148; Mul 1148 520 1057; Mul 1149 42 1068; Sub 1148 1148 1149; Mul 1149 1 876; Mul 1150 669 739;
  Sub 1149 1149 1150; Mul 1150 1 909; Mul 1151 737 854; Mul 1152 1 883; Add 1151 1151 1152; Sub 1151 1150 1151;
  Add 1149 1149 1151; Add 1148 1148 1149; Add 1147 1147 1148; Mul 1152 103 1078; Mul 1153 100 1097;
  Sub 1152 1152 1153; Mul 1153 539 1056; Mul 1154 99 1075; Sub 1153 1153 1154; Mul 1154 734 861; Mul 1155 0 882;
  Add 1154 1154 1155; Mul 1155 0 900; Sub 1154 1154 1155; Mul 1156 671 738; Mul 1157 0 874; Add 1156 1156 1157;
  Sub 1156 1154 1156; Add 1153 1153 1156; Add 1152 1152 1153; Sub 1157 1147 1152; Mul 1158 539 1047;
  Mul 1159 671 516; Sub 1158 1158 1159; Mul 1159 734 518; Add 1158 1158 1159; Mul 1159 731 519;
  Sub 1158 1158 1159; Mul 1159 100 1158; Mul 1160 103 1086; Add 1159 1159 1160; Mul 1160 734 584].
Definition casadi_f0_33 : list instruction := [
  Mul 1161 671 598; Sub 1160 1160 1161; Mul 1161 731 599; Sub 1160 1160 1161; Mul 1161 99 1160;
  Mul 1162 539 1062; Add 1161 1161 1162; Mul 1162 0 858; Mul 1163 734 884; Add 1162 1162 1163; Mul 1163 731 951;
  Sub 1162 1162 1163; Mul 1164 0 733; Mul 1165 671 877; Add 1164 1164 1165; Sub 1164 1162 1164;
  Add 1161 1161 1164; Add 1159 1159 1161; Add 1157 1157 1159; Mul 1165 34 1128; Mul 1166 35 1087;
  Add 1165 1165 1166; Mul 1166 42 1130; Mul 1167 520 1063; Add 1166 1166 1167; Mul 1167 1 736; Mul 1168 669 722;
  Sub 1167 1167 1168; Mul 1168 737 885; Mul 1169 1 859; Sub 1168 1168 1169; Mul 1169 735 949;
  Add 1168 1168 1169; Add 1167 1167 1168; Add 1166 1166 1167; Add 1165 1165 1166; Sub 1157 1157 1165;
  Mul 1157 45 1157; Mul 1170 20 1056; Mul 1171 99 1067; Add 1170 1170 1171; Sub 1170 1013 1170;
  Mul 1171 24 1078; Mul 1172 100 1090; Add 1171 1171 1172; Sub 1171 1170 1171; Mul 1172 99 1061;
  Mul 1173 20 1062; Sub 1172 1172 1173; Add 1172 1172 1016; Mul 1173 100 1085; Mul 1174 24 1086;
  Add 1173 1173 1174; Sub 1173 1172 1173; Sub 1174 1171 1173; Mul 1174 45 1174; Mul 1175 104 1174;
  Sub 1157 1157 1175; Mul 1175 74 1138; Add 1157 1157 1175; Mul 1157 44 1157; Add 1117 1117 1157;
  Add 1147 1147 1165; Add 1152 1152 1159; Sub 1159 1147 1152; Mul 1165 104 1173; Sub 1159 1159 1165;
  Mul 1165 74 1135; Sub 1159 1159 1165; Mul 1165 104 1171; Sub 1159 1159 1165; Mul 1165 74 1137;
  Sub 1159 1159 1165; Mul 1165 83 1146; Add 1159 1159 1165; Mul 1175 83 1144; Sub 1159 1159 1175;
  Add 1159 1159 1165; Sub 1159 1159 1175; Mul 1159 44 1159; Mul 1159 45 1159; Add 1117 1117 1159;
  Mul 1159 60 1117; Add 1093 1093 1159; Mul 1159 698 1084; Mul 1175 879 1096; Sub 1159 1159 1175;
  Mul 1175 24 1082; Sub 1159 1159 1175; Mul 1175 34 1095; Add 1159 1159 1175; Mul 1175 604 1087;
  Sub 1159 1159 1175; Mul 1175 602 1089; Sub 1159 1159 1175; Mul 1175 82 1112; Add 1159 1159 1175;
  Mul 1175 72 1152; Add 1159 1159 1175; Mul 1175 139 1104; Sub 1159 1159 1175; Mul 1175 72 1147;
  Sub 1159 1159 1175; Mul 1175 141 1110; Add 1159 1159 1175; Mul 1175 139 1109; Sub 1159 1159 1175;
  Mul 1175 128 1173; Sub 1159 1159 1175; Mul 1175 606 1090; Add 1159 1159 1175; Mul 1175 603 1098;
  Add 1159 1159 1175; Mul 1175 82 1123; Sub 1159 1159 1175; Mul 1175 133 1174; Sub 1159 1159 1175;
  Mul 1175 128 1171; Sub 1159 1159 1175; Mul 1175 78 1111; Add 1159 1159 1175; Mul 1175 60 1157;
  Sub 1159 1159 1175; Add 1175 104 104; Mul 1165 69 1173; Mul 1176 131 1135; Sub 1177 1165 1176;
  Mul 1178 69 1171; Add 1177 1177 1178; Mul 1179 131 1137; Sub 1177 1177 1179; Mul 1180 44 1177;
  Mul 1181 1175 1180; Add 1159 1159 1181; Mul 1181 80 1140; Mul 1182 80 1141; Add 1182 1182 1182;
  Sub 1182 1181 1182; Add 1182 1182 1181; Mul 1181 131 1173; Add 1182 1182 1181; Mul 1181 69 1135;
  Sub 1182 1182 1181; Mul 1181 131 1171; Add 1182 1182 1181; Mul 1181 69 1137; Sub 1182 1182 1181;
  Mul 1181 74 1182; Mul 1181 44 1181].
Definition casadi_f0_34 : list instruction := [
  Sub 1159 1159 1181; Mul 1181 80 1104; Mul 1183 80 1109; Add 1181 1181 1183; Sub 1176 1176 1181;
  Add 1176 1176 1179; Mul 1179 44 1176; Mul 1175 1175 1179; Add 1159 1159 1175; Mul 1175 701 1060;
  Mul 1183 881 1074; Sub 1175 1175 1183; Mul 1183 20 1058; Sub 1175 1175 1183; Mul 1183 42 1073;
  Add 1175 1175 1183; Mul 1183 627 1063; Sub 1175 1175 1183; Mul 1183 619 1065; Sub 1175 1175 1183;
  Mul 1183 631 1067; Add 1175 1175 1183; Mul 1183 621 1076; Add 1175 1175 1183; Mul 1183 816 751;
  Mul 1184 888 746; Sub 1183 1183 1184; Mul 1184 1 759; Sub 1183 1183 1184; Mul 1184 670 722;
  Sub 1183 1183 1184; Mul 1184 664 878; Add 1183 1183 1184; Mul 1184 675 966; Sub 1183 1183 1184;
  Mul 1184 645 534; Add 1183 1183 1184; Mul 1184 1 867; Mul 1185 962 864; Mul 1186 1052 865; Add 1185 1185 1186;
  Sub 1184 1184 1185; Mul 1185 804 885; Sub 1184 1184 1185; Mul 1185 747 886; Sub 1184 1184 1185;
  Mul 1185 807 868; Sub 1184 1184 1185; Mul 1185 749 815; Sub 1184 1184 1185; Mul 1185 934 949;
  Mul 1186 745 838; Add 1185 1185 1186; Mul 1186 938 944; Sub 1185 1185 1186; Mul 1186 753 1050;
  Add 1185 1185 1186; Mul 1186 273 1185; Add 1184 1184 1186; Add 916 916 916; Mul 1186 745 949;
  Mul 1187 263 1186; Mul 1188 916 1187; Mul 1189 927 1012; Mul 1189 263 1189; Sub 1188 1188 1189;
  Mul 1189 753 951; Mul 1190 741 944; Add 1189 1189 1190; Mul 1190 918 1189; Mul 1190 263 1190;
  Sub 1188 1188 1190; Mul 1190 753 944; Mul 1191 263 1190; Mul 916 916 1191; Sub 1188 1188 916;
  Sub 1184 1184 1188; Mul 916 266 1184; Add 1183 1183 916; Add 795 795 795; Mul 916 747 885; Mul 1192 1 864;
  Sub 916 916 1192; Add 916 916 1186; Mul 1192 246 916; Mul 1193 795 1192; Mul 1194 786 1011; Mul 1194 246 1194;
  Sub 1193 1193 1194; Mul 1194 0 865; Mul 1195 749 884; Add 1194 1194 1195; Mul 1195 744 868;
  Add 1194 1194 1195; Sub 1194 1189 1194; Mul 1195 789 1194; Mul 1195 246 1195; Sub 1193 1193 1195;
  Mul 1195 749 868; Sub 1195 1195 1190; Mul 1196 246 1195; Mul 795 795 1196; Add 1193 1193 795;
  Sub 1183 1183 1193; Mul 795 249 1183; Add 1175 1175 795; Add 640 640 640; Mul 795 1 746; Mul 1197 664 722;
  Sub 795 795 1197; Add 795 795 916; Mul 1197 221 795; Mul 1198 640 1197; Mul 1199 656 790; Mul 1199 221 1199;
  Sub 1198 1198 1199; Mul 1199 645 877; Mul 1200 0 751; Sub 1199 1199 1200; Mul 1200 660 966;
  Add 1199 1199 1200; Add 1199 1199 1194; Mul 1200 643 1199; Mul 1200 221 1200; Sub 1198 1198 1200;
  Mul 1200 645 966; Sub 1200 1195 1200; Mul 1201 221 1200; Mul 640 640 1201; Add 1198 1198 640;
  Sub 1175 1175 1198; Mul 640 227 1175; Add 1159 1159 640; Add 617 617 617; Mul 640 619 1063; Mul 1202 42 1074;
  Sub 640 640 1202; Add 640 640 795; Mul 1202 171 640; Mul 1203 617 1202; Mul 1204 619 1062; Mul 1205 42 1059;
  Mul 1206 99 1074; Add 1205 1205 1206; Sub 1204 1204 1205; Mul 1205 614 1063; Add 1204 1204 1205;
  Add 1204 1204 790; Mul 1205 610 1204].
Definition casadi_f0_35 : list instruction := [
  Mul 1205 171 1205; Sub 1203 1203 1205; Mul 1205 621 1062; Mul 1206 20 1059; Mul 1207 99 1060;
  Add 1206 1206 1207; Sub 1205 1205 1206; Mul 1206 614 1067; Add 1205 1205 1206; Add 1205 1205 1199;
  Mul 1206 612 1205; Mul 1206 171 1206; Sub 1203 1203 1206; Mul 1206 621 1067; Mul 1207 20 1060;
  Sub 1206 1206 1207; Add 1206 1206 1200; Mul 1207 171 1206; Mul 617 617 1207; Add 1203 1203 617;
  Sub 1159 1159 1203; Mul 617 181 1145; Add 1159 1159 617; Add 1159 1159 617; Mul 617 69 1141; Add 617 617 617;
  Mul 1208 131 1104; Sub 617 617 1208; Mul 1208 131 1109; Sub 617 617 1208; Mul 1208 80 1135; Add 617 617 1208;
  Mul 1208 80 1137; Add 617 617 1208; Mul 1208 69 1144; Sub 617 617 1208; Sub 617 617 1208; Mul 1208 83 617;
  Mul 1208 44 1208; Sub 1159 1159 1208; Add 1093 1093 1159; Add 1071 1071 1093; Mul 1208 99 1066;
  Mul 1209 20 1070; Sub 1208 1208 1209; Sub 1209 1103 1108; Mul 1209 45 1209; Mul 1210 540 1209;
  Sub 1211 1113 1119; Sub 1211 1211 1127; Add 1211 1211 1131; Mul 1211 45 1211; Add 1210 1210 1211;
  Sub 1211 1122 1136; Mul 1211 45 1211; Mul 1212 531 1211; Sub 1210 1210 1212; Mul 1210 521 1210;
  Add 1208 1208 1210; Add 1113 1113 1119; Mul 1119 540 1103; Sub 1119 1113 1119; Mul 1212 540 1108;
  Sub 1119 1119 1212; Mul 1212 526 1139; Sub 1119 1119 1212; Sub 1119 1119 1212; Mul 1212 531 1122;
  Sub 1119 1119 1212; Add 1127 1127 1131; Sub 1119 1119 1127; Mul 1131 531 1136; Sub 1119 1119 1131;
  Add 1131 1139 1142; Add 1212 1129 1131; Mul 1213 526 1212; Add 1119 1119 1213; Add 1119 1119 1213;
  Mul 1119 521 1119; Mul 1119 45 1119; Add 1208 1208 1119; Mul 1119 528 1208; Sub 1071 1071 1119;
  Mul 1119 42 1070; Mul 1213 99 1077; Sub 1119 1119 1213; Sub 1213 1148 1153; Add 1213 1213 1161;
  Sub 1213 1213 1166; Mul 1213 45 1213; Sub 1214 1170 1172; Mul 1214 45 1214; Mul 1215 540 1214;
  Sub 1213 1213 1215; Mul 1215 526 1211; Add 1213 1213 1215; Mul 1213 521 1213; Add 1119 1119 1213;
  Add 1148 1148 1166; Add 1153 1153 1161; Sub 1161 1148 1153; Mul 1166 540 1172; Sub 1161 1161 1166;
  Mul 1166 526 1122; Sub 1161 1161 1166; Mul 1166 540 1170; Sub 1161 1161 1166; Mul 1166 526 1136;
  Sub 1161 1161 1166; Mul 1166 531 1212; Add 1161 1161 1166; Mul 1215 531 1142; Sub 1161 1161 1215;
  Add 1161 1161 1166; Sub 1161 1161 1215; Mul 1161 521 1161; Mul 1161 45 1161; Add 1119 1119 1161;
  Mul 1161 522 1119; Add 1071 1071 1161; Mul 1161 530 1113; Mul 1215 524 1153; Add 1161 1161 1215;
  Mul 1215 553 1103; Sub 1161 1161 1215; Mul 1215 524 1148; Sub 1161 1161 1215; Mul 1215 555 1209;
  Add 1161 1161 1215; Mul 1215 553 1108; Sub 1161 1161 1215; Mul 1215 543 1172; Sub 1161 1161 1215;
  Mul 1215 530 1127; Sub 1161 1161 1215; Mul 1215 547 1214; Sub 1161 1161 1215; Mul 1215 543 1170;
  Sub 1161 1161 1215; Mul 1215 528 1210; Add 1161 1161 1215; Mul 1215 522 1213; Sub 1161 1161 1215;
  Add 1215 540 540; Mul 1166 523 1172; Mul 1216 545 1122; Sub 1217 1166 1216; Mul 1218 523 1170;
  Add 1217 1217 1218].
Definition casadi_f0_36 : list instruction := [
  Mul 1219 545 1136; Sub 1217 1217 1219; Mul 1220 521 1217; Mul 1221 1215 1220; Add 1161 1161 1221;
  Mul 1221 529 1139; Mul 1222 529 1129; Add 1222 1222 1222; Sub 1222 1221 1222; Add 1222 1222 1221;
  Mul 1221 545 1172; Add 1222 1222 1221; Mul 1221 523 1122; Sub 1222 1222 1221; Mul 1221 545 1170;
  Add 1222 1222 1221; Mul 1221 523 1136; Sub 1222 1222 1221; Mul 1221 526 1222; Mul 1221 521 1221;
  Sub 1161 1161 1221; Mul 1221 529 1103; Mul 1223 529 1108; Add 1221 1221 1223; Sub 1216 1216 1221;
  Add 1216 1216 1219; Mul 1219 521 1216; Mul 1215 1215 1219; Add 1161 1161 1215; Mul 1175 622 1175;
  Add 1161 1161 1175; Add 1161 1161 1203; Mul 1203 589 1131; Add 1161 1161 1203; Add 1161 1161 1203;
  Mul 1203 523 1129; Add 1203 1203 1203; Mul 1175 545 1103; Sub 1203 1203 1175; Mul 1175 545 1108;
  Sub 1203 1203 1175; Mul 1175 529 1122; Add 1203 1203 1175; Mul 1175 529 1136; Add 1203 1203 1175;
  Mul 1175 523 1142; Sub 1203 1203 1175; Sub 1203 1203 1175; Mul 1175 531 1203; Mul 1175 521 1175;
  Sub 1161 1161 1175; Add 1071 1071 1161; Mul 1175 40 1071; Sub 517 517 1175; Mul 1175 544 1214;
  Add 1175 1204 1175; Mul 1215 522 1211; Add 1175 1175 1215; Add 1175 1175 1222; Mul 1215 568 1175;
  Mul 1223 26 1093; Add 1215 1215 1223; Mul 1223 24 1098; Mul 1224 34 1089; Sub 1223 1223 1224;
  Mul 1224 34 1116; Mul 1225 137 1087; Add 1224 1224 1225; Mul 1225 42 1118; Mul 1226 551 1063;
  Add 1225 1225 1226; Mul 1226 1 730; Mul 1227 679 722; Add 1226 1226 1227; Mul 1227 729 885;
  Sub 1226 1226 1227; Add 1225 1225 1226; Add 1224 1224 1225; Mul 1228 137 1081; Mul 1229 34 1088;
  Sub 1228 1228 1229; Mul 1229 551 1057; Mul 1230 42 1064; Sub 1229 1229 1230; Mul 1230 679 739; Mul 1231 1 773;
  Add 1230 1230 1231; Mul 1231 729 854; Mul 1232 1 846; Sub 1231 1231 1232; Add 1230 1230 1231;
  Add 1229 1229 1230; Add 1228 1228 1229; Sub 1232 1224 1228; Mul 1233 103 1085; Mul 1234 24 1097;
  Sub 1233 1233 1234; Mul 1234 671 767; Mul 1235 731 963; Mul 1236 734 869; Sub 1236 1235 1236;
  Add 1234 1234 1236; Mul 1237 539 1061; Mul 1238 20 1075; Add 1237 1237 1238; Sub 1237 1234 1237;
  Add 1233 1233 1237; Add 1232 1232 1233; Mul 1238 24 1158; Mul 1239 103 1090; Add 1238 1238 1239;
  Mul 1239 20 1160; Mul 1240 539 1067; Add 1239 1239 1240; Mul 1240 671 966; Mul 1241 731 944; Mul 1242 734 868;
  Sub 1242 1241 1242; Add 1240 1240 1242; Add 1239 1239 1240; Add 1238 1238 1239; Sub 1232 1232 1238;
  Mul 1232 45 1232; Mul 1243 74 1110; Sub 1232 1232 1243; Mul 1243 83 1174; Add 1232 1232 1243;
  Mul 1232 44 1232; Add 1223 1223 1232; Add 1233 1233 1238; Add 1228 1228 1224; Mul 1224 74 1104;
  Add 1224 1228 1224; Mul 1238 74 1109; Add 1224 1224 1238; Mul 1238 83 1173; Add 1224 1224 1238;
  Sub 1224 1233 1224; Mul 1238 83 1171; Sub 1224 1224 1238; Mul 1145 104 1145; Add 1224 1224 1145;
  Add 1224 1224 1145; Mul 1224 44 1224; Mul 1224 45 1224; Add 1223 1223 1224; Mul 1224 129 1223;
  Mul 1145 77 1159; Add 1224 1224 1145].
Definition casadi_f0_37 : list instruction := [
  Mul 1145 103 1089; Mul 1238 164 1110; Add 1145 1145 1238; Mul 1238 137 1098; Sub 1145 1145 1238;
  Mul 1238 164 1086; Mul 1243 185 1087; Add 1238 1238 1243; Mul 1243 74 1092; Sub 1238 1238 1243;
  Mul 1243 104 1098; Add 1238 1238 1243; Mul 1243 174 1090; Add 1238 1238 1243; Mul 1243 34 1238;
  Sub 1145 1145 1243; Mul 1243 153 1086; Mul 1244 104 1089; Sub 1243 1243 1244; Mul 1244 172 1087;
  Add 1243 1243 1244; Mul 1244 83 1092; Add 1243 1243 1244; Mul 1244 185 1090; Add 1243 1243 1244;
  Mul 1244 24 1243; Add 1145 1145 1244; Mul 1244 153 1174; Add 1145 1145 1244; Mul 1244 83 1111;
  Sub 1145 1145 1244; Mul 1244 74 1157; Add 1145 1145 1244; Mul 1244 173 1138; Add 1145 1145 1244;
  Mul 1244 25 1099; Add 1145 1145 1244; Mul 1244 41 1117; Sub 1145 1145 1244; Mul 1244 161 1173;
  Mul 1245 166 1104; Mul 1246 166 1109; Add 1245 1245 1246; Mul 1246 187 1140; Add 1245 1245 1246;
  Add 1245 1245 1246; Sub 1244 1244 1245; Mul 1245 177 1135; Add 1244 1244 1245; Mul 1245 183 1135;
  Sub 1244 1244 1245; Mul 1245 74 1147; Mul 1246 83 1112; Mul 1247 74 1152; Add 1246 1246 1247;
  Sub 1245 1245 1246; Mul 1246 83 1123; Add 1245 1245 1246; Mul 1245 44 1245; Add 1244 1244 1245;
  Mul 1245 161 1171; Add 1244 1244 1245; Mul 1245 183 1137; Sub 1244 1244 1245; Mul 1245 177 1137;
  Add 1244 1244 1245; Mul 1245 187 1144; Add 1244 1244 1245; Add 1244 1244 1245; Mul 1244 45 1244;
  Add 1145 1145 1244; Mul 1244 71 1145; Add 1224 1224 1244; Mul 1244 61 1224; Add 1215 1215 1244;
  Mul 1244 602 1086; Mul 1245 34 1083; Mul 1246 100 1096; Add 1245 1245 1246; Sub 1244 1244 1245;
  Mul 1245 600 1087; Add 1244 1244 1245; Add 1244 1244 1204; Mul 1245 130 1174; Add 1244 1244 1245;
  Mul 1245 60 1138; Add 1244 1244 1245; Add 1244 1244 1182; Mul 1245 155 1244; Mul 1246 124 1223;
  Add 1245 1245 1246; Mul 1246 75 1159; Add 1245 1245 1246; Mul 1246 603 1086; Mul 1247 24 1083;
  Mul 1248 100 1084; Add 1247 1247 1248; Sub 1246 1246 1247; Mul 1247 130 1110; Add 1246 1246 1247;
  Mul 1247 600 1090; Add 1246 1246 1247; Mul 1247 78 1138; Add 1246 1246 1247; Add 1246 1246 1205;
  Add 1246 1246 617; Mul 1247 165 1246; Add 1245 1245 1247; Mul 1247 603 1087; Mul 1248 24 1096;
  Mul 1249 34 1084; Add 1248 1248 1249; Sub 1247 1247 1248; Mul 1248 60 1110; Add 1247 1247 1248;
  Mul 1248 602 1090; Add 1247 1247 1248; Mul 1248 78 1174; Add 1247 1247 1248; Mul 1248 621 1063;
  Mul 1249 20 1074; Mul 1250 42 1060; Add 1249 1249 1250; Sub 1248 1248 1249; Mul 1249 619 1067;
  Add 1248 1248 1249; Mul 1249 1 751; Mul 1250 645 722; Add 1249 1249 1250; Mul 1250 664 966;
  Add 1249 1249 1250; Mul 1250 1 865; Mul 1251 749 885; Sub 1250 1250 1251; Mul 1251 747 868;
  Sub 1250 1250 1251; Mul 1251 745 944; Mul 1252 753 949; Sub 1251 1251 1252; Add 1250 1250 1251;
  Add 1249 1249 1250; Add 1248 1248 1249; Add 1247 1247 1248; Mul 1252 69 1104; Mul 1253 69 1109;
  Add 1252 1252 1253; Mul 1253 131 1140; Sub 1252 1252 1253; Sub 1252 1252 1253].
Definition casadi_f0_38 : list instruction := [
  Mul 1253 80 1173; Sub 1252 1252 1253; Mul 1253 80 1171; Sub 1252 1252 1253; Mul 1253 131 1144;
  Add 1252 1252 1253; Add 1252 1252 1253; Add 1247 1247 1252; Mul 1253 157 1247; Add 1245 1245 1253;
  Mul 1253 65 1145; Add 1245 1245 1253; Mul 1253 62 1245; Add 1215 1215 1253; Mul 1253 20 1077;
  Mul 1254 42 1066; Sub 1253 1253 1254; Sub 1254 1225 1229; Add 1254 1254 1237; Sub 1254 1254 1239;
  Mul 1254 45 1254; Mul 1255 526 1209; Sub 1254 1254 1255; Mul 1255 531 1214; Add 1254 1254 1255;
  Mul 1254 521 1254; Add 1253 1253 1254; Add 1237 1237 1239; Add 1229 1229 1225; Mul 1225 526 1103;
  Add 1225 1229 1225; Mul 1239 526 1108; Add 1225 1225 1239; Mul 1239 531 1172; Add 1225 1225 1239;
  Sub 1225 1237 1225; Mul 1239 531 1170; Sub 1225 1225 1239; Mul 1131 540 1131; Add 1225 1225 1131;
  Add 1225 1225 1131; Mul 1225 521 1225; Mul 1225 45 1225; Add 1253 1253 1225; Mul 1225 122 1253;
  Add 1215 1215 1225; Mul 1225 208 1161; Add 1215 1215 1225; Mul 1225 544 1209; Mul 1131 528 1211;
  Add 1225 1225 1131; Add 1225 1225 1205; Add 1225 1225 1203; Mul 1131 575 1225; Add 1215 1215 1131;
  Mul 1131 522 1209; Mul 1239 528 1214; Add 1131 1131 1239; Add 1131 1131 1248; Mul 1239 523 1103;
  Mul 1255 523 1108; Add 1239 1239 1255; Mul 1255 545 1139; Sub 1239 1239 1255; Sub 1239 1239 1255;
  Mul 1255 529 1172; Sub 1239 1239 1255; Mul 1255 529 1170; Sub 1239 1239 1255; Mul 1255 545 1142;
  Add 1239 1239 1255; Add 1239 1239 1255; Add 1131 1131 1239; Mul 1255 239 1131; Add 1215 1215 1255;
  Mul 1255 539 1066; Mul 1256 574 1209; Add 1255 1255 1256; Mul 1256 551 1077; Sub 1255 1255 1256;
  Mul 1256 620 1062; Mul 1257 995 1047; Sub 1256 1256 1257; Mul 1257 613 1063; Add 1256 1256 1257;
  Mul 1257 623 1069; Sub 1256 1256 1257; Mul 1257 626 1076; Add 1256 1256 1257; Mul 1257 999 1067;
  Add 1256 1256 1257; Mul 1257 42 1256; Sub 1255 1255 1257; Mul 1257 616 1062; Mul 1258 682 1047;
  Sub 1257 1257 1258; Mul 1258 626 1065; Sub 1257 1257 1258; Mul 1258 989 1063; Add 1257 1257 1258;
  Mul 1258 629 1069; Add 1257 1257 1258; Mul 1258 613 1067; Add 1257 1257 1258; Mul 1258 20 1257;
  Add 1255 1255 1258; Mul 1258 566 1214; Add 1255 1255 1258; Mul 1258 531 1210; Sub 1255 1255 1258;
  Mul 1258 526 1213; Add 1255 1255 1258; Mul 1258 581 1211; Add 1255 1255 1258; Mul 1258 18 1208;
  Add 1255 1255 1258; Mul 1258 39 1119; Sub 1255 1255 1258; Mul 1258 571 1172; Mul 1259 576 1103;
  Mul 1260 576 1108; Add 1259 1259 1260; Mul 1260 595 1139; Add 1259 1259 1260; Add 1259 1259 1260;
  Sub 1258 1258 1259; Mul 1259 585 1122; Add 1258 1258 1259; Mul 1259 591 1122; Sub 1258 1258 1259;
  Mul 1259 526 1148; Mul 1260 531 1113; Mul 1261 526 1153; Add 1260 1260 1261; Sub 1259 1259 1260;
  Mul 1260 531 1127; Add 1259 1259 1260; Mul 1259 521 1259; Add 1258 1258 1259; Mul 1259 571 1170;
  Add 1258 1258 1259; Mul 1259 591 1136; Sub 1258 1258 1259; Mul 1259 585 1136; Add 1258 1258 1259;
  Mul 1259 595 1142; Add 1258 1258 1259; Add 1258 1258 1259; Mul 1258 45 1258].
Definition casadi_f0_39 : list instruction := [
  Add 1255 1255 1258; Mul 1258 64 1255; Add 1215 1215 1258; Mul 1258 23 1215; Sub 517 517 1258;
  Mul 1258 601 1080; Mul 140 140 1116; Add 1258 1258 140; Mul 140 149 1078; Sub 1258 1258 140; Mul 140 608 1081;
  Sub 1258 1258 140; Mul 106 106 1158; Add 1258 1258 106; Mul 106 89 1128; Add 1258 1258 106; Mul 106 173 1083;
  Sub 1258 1258 106; Mul 106 153 1096; Sub 1258 1258 106; Mul 106 164 1084; Sub 1258 1258 106; Mul 106 83 1082;
  Add 1258 1258 106; Mul 106 74 1095; Sub 1258 1258 106; Mul 106 609 1085; Sub 1258 1258 106; Mul 143 143 1088;
  Sub 1258 1258 143; Mul 135 135 1097; Sub 1258 1258 135; Mul 135 89 1091; Sub 1258 1258 135; Mul 149 149 1086;
  Sub 1258 1258 149; Mul 149 179 1087; Sub 1258 1258 149; Mul 149 138 1089; Add 1258 1258 149; Mul 149 189 1090;
  Sub 1258 1258 149; Mul 149 25 1079; Sub 1258 1258 149; Mul 149 41 1094; Add 1258 1258 149; Mul 149 121 1098;
  Sub 1258 1258 149; Mul 149 60 1238; Add 1258 1258 149; Mul 149 78 1243; Sub 1258 1258 149; Mul 149 151 1244;
  Add 1258 1258 149; Mul 149 565 1175; Add 1258 1258 149; Mul 149 120 1223; Add 1258 1258 149; Mul 1159 73 1159;
  Add 1258 1258 1159; Mul 1159 21 1093; Add 1258 1258 1159; Mul 1159 163 1246; Add 1258 1258 1159;
  Mul 1159 160 1247; Sub 1258 1258 1159; Mul 1159 59 1145; Add 1258 1258 1159; Mul 1159 116 1253;
  Add 1258 1258 1159; Mul 1159 525 1161; Add 1258 1258 1159; Mul 1159 573 1225; Add 1258 1258 1159;
  Mul 1159 52 1255; Add 1258 1258 1159; Mul 1159 22 1258; Add 517 517 1159; Mul 1159 1 880; Sub 149 1226 1230;
  Add 149 149 1234; Sub 149 149 1240; Mul 149 45 149; Sub 135 1100 1105; Mul 135 45 135; Mul 143 655 135;
  Sub 149 149 143; Mul 143 642 1019; Add 149 149 143; Mul 149 673 149; Add 1159 1159 149; Add 1234 1234 1240;
  Add 1230 1230 1226; Mul 1226 655 1100; Add 1226 1230 1226; Mul 1240 655 1105; Add 1226 1226 1240;
  Mul 1240 642 1016; Add 1226 1226 1240; Sub 1226 1234 1226; Mul 1240 642 1013; Sub 1226 1226 1240;
  Sub 1240 1028 1143; Mul 143 639 1240; Add 1226 1226 143; Add 1226 1226 143; Mul 1226 673 1226;
  Mul 1226 45 1226; Add 1159 1159 1226; Mul 1226 118 1159; Sub 517 517 1226; Add 1226 1114 1120;
  Mul 143 684 1226; Add 106 1156 1164; Mul 140 690 106; Add 143 143 140; Mul 140 678 1100; Sub 143 143 140;
  Add 140 1149 1167; Mul 1259 690 140; Sub 143 143 1259; Mul 1259 685 135; Add 143 143 1259; Mul 1259 678 1105;
  Sub 143 143 1259; Mul 1259 692 1016; Sub 143 143 1259; Add 1259 1124 1132; Mul 1260 684 1259;
  Sub 143 143 1260; Mul 1260 693 1019; Sub 143 143 1260; Mul 1260 692 1013; Sub 143 143 1260; Mul 1260 639 135;
  Sub 1114 1114 1120; Sub 1114 1114 1124; Add 1114 1114 1132; Mul 1114 45 1114; Add 1260 1260 1114;
  Mul 1114 642 1027; Sub 1260 1260 1114; Mul 1260 673 1260; Mul 1114 659 1260; Add 143 143 1114;
  Sub 1149 1149 1156; Add 1149 1149 1164; Sub 1149 1149 1167; Mul 1149 45 1149].
Definition casadi_f0_40 : list instruction := [
  Mul 1167 639 1019; Sub 1149 1149 1167; Mul 1167 655 1027; Add 1149 1149 1167; Mul 1149 673 1149;
  Mul 1167 646 1149; Sub 143 143 1167; Add 1167 639 639; Mul 1164 689 1016; Mul 1156 680 1023;
  Sub 1114 1164 1156; Mul 1132 689 1013; Add 1114 1114 1132; Mul 1124 680 1026; Sub 1114 1114 1124;
  Mul 1120 673 1114; Mul 1261 1167 1120; Add 143 143 1261; Mul 1261 655 1035; Mul 1261 673 1261;
  Sub 143 143 1261; Mul 1261 683 1100; Mul 1262 683 1105; Add 1261 1261 1262; Sub 1156 1156 1261;
  Add 1156 1156 1124; Mul 1124 673 1156; Mul 1167 1167 1124; Add 143 143 1167; Mul 1183 661 1183;
  Add 143 143 1183; Add 143 143 1198; Mul 1198 711 1240; Add 143 143 1198; Add 143 143 1198; Mul 1198 689 1034;
  Add 1198 1198 1198; Mul 1183 680 1100; Sub 1198 1198 1183; Mul 1183 680 1105; Sub 1198 1198 1183;
  Mul 1183 683 1023; Add 1198 1198 1183; Mul 1183 683 1026; Add 1198 1198 1183; Mul 1183 689 1143;
  Add 1198 1198 1183; Add 1198 1198 1183; Mul 1183 642 1198; Mul 1183 673 1183; Sub 143 143 1183;
  Mul 1183 229 143; Sub 517 517 1183; Mul 1183 644 135; Mul 1167 659 1027; Add 1183 1183 1167;
  Add 1183 1183 1199; Add 1183 1183 1198; Mul 1167 636 1183; Sub 517 517 1167; Mul 1167 646 135;
  Mul 1262 659 1019; Add 1167 1167 1262; Add 1167 1167 1249; Mul 1262 689 1100; Mul 1263 689 1105;
  Add 1262 1262 1263; Mul 1263 680 1028; Sub 1262 1262 1263; Sub 1262 1262 1263; Mul 1263 683 1016;
  Sub 1262 1262 1263; Mul 1263 683 1013; Sub 1262 1262 1263; Mul 1263 680 1143; Sub 1262 1262 1263;
  Sub 1262 1262 1263; Add 1167 1167 1262; Mul 1263 287 1167; Sub 517 517 1263; Mul 1263 635 135;
  Mul 1264 671 880; Sub 1263 1263 1264; Mul 1264 679 700; Add 1263 1263 1264; Mul 1264 1 994;
  Add 1263 1263 1264; Mul 1264 662 1019; Add 1263 1263 1264; Mul 1264 642 1260; Sub 1263 1263 1264;
  Mul 1264 655 1149; Add 1263 1263 1264; Mul 1264 648 1027; Add 1263 1263 1264; Mul 1264 0 880;
  Add 1264 1264 1260; Mul 1265 639 1100; Sub 1265 1226 1265; Mul 1266 639 1105; Sub 1265 1265 1266;
  Mul 1266 655 1028; Sub 1265 1265 1266; Sub 1265 1265 1266; Mul 1266 642 1023; Sub 1265 1265 1266;
  Sub 1265 1265 1259; Mul 1266 642 1026; Sub 1265 1265 1266; Add 1240 1034 1240; Mul 1266 655 1240;
  Add 1265 1265 1266; Add 1265 1265 1266; Mul 1265 673 1265; Mul 1265 45 1265; Add 1264 1264 1265;
  Mul 1265 11 1264; Add 1263 1263 1265; Mul 1265 0 700; Mul 1266 1 980; Sub 1265 1265 1266; Add 1265 1265 1149;
  Sub 1266 140 106; Mul 1267 639 1016; Sub 1266 1266 1267; Mul 1267 655 1023; Sub 1266 1266 1267;
  Mul 1267 639 1013; Sub 1266 1266 1267; Mul 1267 655 1026; Sub 1266 1266 1267; Mul 1267 642 1240;
  Add 1266 1266 1267; Mul 1268 642 1143; Add 1266 1266 1268; Add 1266 1266 1267; Add 1266 1266 1268;
  Mul 1266 673 1266; Mul 1266 45 1266; Add 1265 1265 1266; Mul 1266 38 1265; Sub 1263 1263 1266;
  Mul 1266 723 1016; Mul 1268 713 1100; Mul 1267 713 1105; Add 1268 1268 1267; Mul 1267 705 1028;
  Add 1268 1268 1267; Add 1268 1268 1267].
Definition casadi_f0_41 : list instruction := [
  Sub 1266 1266 1268; Mul 1268 709 1023; Add 1266 1266 1268; Mul 1268 707 1023; Sub 1266 1266 1268;
  Mul 1268 655 140; Mul 1267 642 1226; Mul 1269 655 106; Add 1267 1267 1269; Sub 1268 1268 1267;
  Mul 1267 642 1259; Add 1268 1268 1267; Mul 1268 673 1268; Add 1266 1266 1268; Mul 1268 723 1013;
  Add 1266 1266 1268; Mul 1268 707 1026; Sub 1266 1266 1268; Mul 1268 709 1026; Add 1266 1266 1268;
  Mul 1268 705 1143; Sub 1266 1266 1268; Sub 1266 1266 1268; Mul 1266 45 1266; Add 1263 1263 1266;
  Mul 1266 57 1263; Sub 517 517 1266; Add 1266 1231 1227; Sub 1266 1236 1266; Sub 1266 1266 1242;
  Mul 1266 45 1266; Sub 1268 1102 1106; Mul 1268 45 1268; Mul 1267 785 1268; Sub 1266 1266 1267;
  Mul 1267 788 1031; Add 1266 1266 1267; Mul 1266 805 1266; Mul 1267 1 887; Sub 1267 1266 1267;
  Add 1236 1236 1242; Sub 1231 1231 1227; Mul 1227 785 1102; Add 1227 1231 1227; Mul 1242 785 1106;
  Add 1227 1227 1242; Mul 1242 788 1018; Add 1227 1227 1242; Sub 1227 1236 1227; Mul 1242 788 1015;
  Sub 1227 1227 1242; Sub 1242 1029 1143; Mul 1269 794 1242; Add 1227 1227 1269; Add 1227 1227 1269;
  Mul 1227 805 1227; Mul 1227 45 1227; Add 1267 1267 1227; Mul 1227 117 1267; Sub 517 517 1227;
  Sub 1227 1115 1121; Mul 1269 812 1227; Add 1270 1154 1162; Mul 1271 809 1270; Add 1269 1269 1271;
  Mul 1271 828 1102; Sub 1269 1269 1271; Add 1271 1151 1168; Mul 1272 809 1271; Sub 1269 1269 1272;
  Mul 1272 830 1268; Add 1269 1269 1272; Mul 1272 828 1106; Sub 1269 1269 1272; Mul 1272 821 1018;
  Sub 1269 1269 1272; Add 1272 1126 1134; Mul 1273 812 1272; Sub 1269 1269 1273; Mul 1273 824 1031;
  Sub 1269 1269 1273; Mul 1273 821 1015; Sub 1269 1269 1273; Mul 1273 794 1268; Add 1115 1115 1121;
  Sub 1115 1115 1126; Add 1115 1115 1134; Mul 1115 45 1115; Add 1273 1273 1115; Mul 1115 788 1037;
  Sub 1273 1273 1115; Mul 1273 805 1273; Mul 1115 743 1273; Add 1269 1269 1115; Sub 1151 1151 1154;
  Add 1151 1151 1162; Sub 1151 1151 1168; Mul 1151 45 1151; Mul 1168 794 1031; Sub 1151 1151 1168;
  Mul 1168 785 1037; Add 1151 1151 1168; Mul 1151 805 1151; Mul 1168 750 1151; Sub 1269 1269 1168;
  Add 1168 794 794; Mul 1162 808 1018; Mul 1154 822 1021; Sub 1115 1162 1154; Mul 1134 808 1015;
  Add 1115 1115 1134; Mul 1126 822 1024; Sub 1115 1115 1126; Mul 1121 805 1115; Mul 1274 1168 1121;
  Add 1269 1269 1274; Mul 1274 785 1039; Mul 1274 805 1274; Sub 1269 1269 1274; Mul 1274 811 1102;
  Mul 1275 811 1106; Add 1274 1274 1275; Sub 1154 1154 1274; Add 1154 1154 1126; Mul 1126 805 1154;
  Mul 1168 1168 1126; Add 1269 1269 1168; Mul 1184 800 1184; Add 1269 1269 1184; Add 1269 1269 1193;
  Mul 1193 855 1242; Add 1269 1269 1193; Add 1269 1269 1193; Mul 1193 808 1032; Add 1193 1193 1193;
  Mul 1184 822 1102; Sub 1193 1193 1184; Mul 1184 822 1106; Sub 1193 1193 1184; Mul 1184 811 1021;
  Add 1193 1193 1184; Mul 1184 811 1024; Add 1193 1193 1184; Mul 1184 808 1143; Add 1193 1193 1184;
  Add 1193 1193 1184; Mul 1184 788 1193; Mul 1184 805 1184; Sub 1269 1269 1184].
Definition casadi_f0_42 : list instruction := [
  Mul 1184 252 1269; Sub 517 517 1184; Mul 1184 1 687; Mul 1168 1 985; Add 1168 1168 1071; Mul 1275 659 1264;
  Sub 1168 1168 1275; Mul 1275 646 1265; Add 1168 1168 1275; Add 1168 1168 143; Add 1184 1184 1168;
  Mul 1275 0 887; Sub 1275 1273 1275; Mul 1276 794 1102; Sub 1276 1227 1276; Mul 1277 794 1106;
  Sub 1276 1276 1277; Mul 1277 785 1029; Sub 1276 1276 1277; Sub 1276 1276 1277; Mul 1277 788 1021;
  Sub 1276 1276 1277; Sub 1276 1276 1272; Mul 1277 788 1024; Sub 1276 1276 1277; Add 1242 1032 1242;
  Mul 1277 785 1242; Add 1276 1276 1277; Add 1276 1276 1277; Mul 1276 805 1276; Mul 1276 45 1276;
  Add 1275 1275 1276; Mul 1276 743 1275; Sub 1184 1184 1276; Mul 1276 1 1000; Mul 1277 0 832;
  Add 1276 1276 1277; Add 1276 1276 1151; Sub 1277 1271 1270; Mul 1278 794 1018; Sub 1277 1277 1278;
  Mul 1278 785 1021; Sub 1277 1277 1278; Mul 1278 794 1015; Sub 1277 1277 1278; Mul 1278 785 1024;
  Sub 1277 1277 1278; Mul 1278 788 1242; Add 1277 1277 1278; Mul 1279 788 1143; Add 1277 1277 1279;
  Add 1277 1277 1278; Add 1277 1277 1279; Mul 1277 805 1277; Mul 1277 45 1277; Add 1276 1276 1277;
  Mul 1277 750 1276; Add 1184 1184 1277; Add 1184 1184 1269; Mul 1277 37 1184; Sub 517 517 1277;
  Mul 1277 748 1268; Mul 1279 743 1037; Add 1277 1277 1279; Add 1277 1277 1194; Add 1277 1277 1193;
  Mul 1279 798 1277; Sub 517 517 1279; Mul 1279 750 1268; Mul 1278 743 1031; Add 1279 1279 1278;
  Add 1279 1279 1250; Mul 1278 808 1102; Mul 1280 808 1106; Add 1278 1278 1280; Mul 1280 822 1029;
  Sub 1278 1278 1280; Sub 1278 1278 1280; Mul 1280 811 1018; Sub 1278 1278 1280; Mul 1280 811 1015;
  Sub 1278 1278 1280; Mul 1280 822 1143; Sub 1278 1278 1280; Sub 1278 1278 1280; Add 1279 1279 1278;
  Mul 1280 300 1279; Sub 517 517 1280; Mul 1280 734 887; Mul 1281 797 1268; Add 1280 1280 1281;
  Mul 1281 729 832; Add 1280 1280 1281; Mul 1281 1 817; Add 1280 1280 1281; Mul 1281 792 1031;
  Add 1280 1280 1281; Mul 1281 788 1273; Sub 1280 1280 1281; Mul 1281 785 1151; Add 1280 1280 1281;
  Mul 1281 774 1037; Add 1280 1280 1281; Mul 1281 6 1275; Add 1280 1280 1281; Mul 1281 36 1276;
  Sub 1280 1280 1281; Mul 1281 840 1018; Mul 1282 842 1102; Mul 1283 842 1106; Add 1282 1282 1283;
  Mul 1283 849 1029; Add 1282 1282 1283; Add 1282 1282 1283; Sub 1281 1281 1282; Mul 1282 853 1021;
  Add 1281 1281 1282; Mul 1282 851 1021; Sub 1281 1281 1282; Mul 1282 785 1271; Mul 1283 788 1227;
  Mul 1284 785 1270; Add 1283 1283 1284; Sub 1282 1282 1283; Mul 1283 788 1272; Add 1282 1282 1283;
  Mul 1282 805 1282; Add 1281 1281 1282; Mul 1282 840 1015; Add 1281 1281 1282; Mul 1282 851 1024;
  Sub 1281 1281 1282; Mul 1282 853 1024; Add 1281 1281 1282; Mul 1282 849 1143; Sub 1281 1281 1282;
  Sub 1281 1281 1282; Mul 1281 45 1281; Add 1280 1280 1281; Mul 1281 56 1280; Sub 517 517 1281;
  Sub 1281 1101 1107; Mul 1281 45 1281; Mul 1282 754 1281; Mul 1283 740 1038; Add 1282 1282 1283;
  Add 1282 1282 1251; Mul 1283 889 1101; Mul 1284 889 1107].
Definition casadi_f0_43 : list instruction := [
  Add 1283 1283 1284; Mul 1284 894 1030; Add 1283 1283 1284; Add 1283 1283 1284; Mul 1284 902 1017;
  Sub 1283 1283 1284; Mul 1284 902 1014; Sub 1283 1283 1284; Mul 1284 894 1143; Sub 1283 1283 1284;
  Sub 1283 1283 1284; Add 1282 1282 1283; Mul 1284 306 1282; Sub 517 517 1284; Mul 1284 752 1281;
  Mul 1285 740 1041; Add 1284 1284 1285; Add 1284 1284 1189; Mul 1285 889 1143; Mul 1286 889 1033;
  Add 1286 1286 1286; Mul 1287 894 1101; Add 1286 1286 1287; Mul 1287 894 1107; Add 1286 1286 1287;
  Mul 1287 902 1022; Add 1286 1286 1287; Mul 1287 902 1025; Add 1286 1286 1287; Sub 1286 1285 1286;
  Add 1286 1286 1285; Add 1284 1284 1286; Mul 1285 914 1284; Add 517 517 1285; Mul 1285 1 900; Mul 1287 731 949;
  Add 1288 1285 1287; Mul 1289 895 1288; Add 1290 1155 1163; Mul 1291 890 1290; Mul 1292 940 1101;
  Add 1291 1291 1292; Sub 1291 1289 1291; Sub 1291 1291 1289; Add 1289 1150 1169; Mul 1292 890 1289;
  Sub 1291 1291 1292; Mul 1292 925 1281; Add 1291 1291 1292; Mul 1292 940 1107; Sub 1291 1291 1292;
  Add 1292 1125 1133; Mul 1293 903 1292; Sub 1291 1291 1293; Mul 1293 896 1038; Add 1291 1291 1293;
  Mul 1293 891 1281; Sub 1133 1133 1125; Mul 1133 45 1133; Add 1293 1293 1133; Mul 1133 904 1041;
  Sub 1293 1293 1133; Mul 1293 763 1293; Mul 1133 740 1293; Add 1291 1291 1133; Add 1155 1155 1150;
  Sub 1163 1163 1155; Add 1163 1163 1169; Mul 1163 45 1163; Mul 1169 891 1038; Add 1163 1163 1169;
  Mul 1169 893 1041; Sub 1163 1163 1169; Mul 1163 763 1163; Mul 1169 754 1163; Add 1291 1291 1169;
  Add 1169 891 891; Mul 1155 889 1017; Mul 1150 894 1022; Add 1133 1155 1150; Mul 1125 889 1014;
  Add 1133 1133 1125; Mul 1294 894 1025; Add 1133 1133 1294; Mul 1295 763 1133; Mul 1296 1169 1295;
  Add 1291 1291 1296; Mul 1296 893 1042; Mul 1296 763 1296; Sub 1291 1291 1296; Mul 1296 902 1101;
  Mul 1297 902 1107; Add 1296 1296 1297; Add 1150 1296 1150; Add 1150 1150 1294; Mul 1294 763 1150;
  Mul 1169 1169 1294; Sub 1291 1291 1169; Mul 1185 930 1185; Add 1291 1291 1185; Add 1291 1291 1188;
  Mul 1188 904 1286; Mul 1188 763 1188; Sub 1291 1291 1188; Add 1188 1030 1143; Mul 1185 936 1188;
  Add 1291 1291 1185; Add 1291 1291 1185; Mul 1185 264 1291; Sub 517 517 1185; Mul 1185 91 1040;
  Mul 1169 754 1038; Add 1186 1186 1169; Sub 1186 1186 1150; Sub 1296 1296 1155; Sub 1296 1296 1125;
  Mul 1125 741 951; Sub 1155 1296 1125; Mul 1150 752 1041; Add 1155 1155 1150; Sub 1186 1186 1155;
  Mul 1150 28 1186; Add 1185 1185 1150; Mul 1150 910 1185; Mul 1169 750 1031; Add 916 916 1169;
  Add 916 916 1154; Mul 1154 0 863; Mul 1169 744 884; Add 1154 1154 1169; Sub 1154 1154 1125;
  Sub 1274 1274 1162; Sub 1274 1274 1134; Add 1134 1154 1274; Mul 1162 748 1037; Add 1134 1134 1162;
  Sub 916 916 1134; Mul 1162 1 916; Mul 1169 0 1036; Sub 1162 1162 1169; Mul 1169 782 1162; Mul 1297 93 1036;
  Mul 1298 30 916; Add 1297 1297 1298; Mul 1298 778 1297; Add 1169 1169 1298; Mul 1298 104 72;
  Sub 1298 128 1298; Mul 1299 132 74].
Definition casadi_f0_44 : list instruction := [
  Add 1298 1298 1299; Add 1299 1298 134; Mul 1300 35 1299; Mul 1301 103 76; Mul 1302 137 983;
  Add 1301 1301 1302; Add 1300 1300 1301; Mul 1301 100 608; Mul 1302 131 187; Sub 169 169 1302;
  Mul 1303 181 104; Add 1303 1303 145; Sub 146 146 1303; Mul 145 104 181; Add 145 145 148; Sub 136 136 145;
  Add 146 146 136; Mul 136 187 131; Sub 162 136 162; Add 146 146 162; Sub 169 169 146; Mul 146 34 169;
  Mul 162 131 177; Mul 148 69 161; Sub 162 162 148; Mul 148 83 139; Mul 1304 128 74; Add 148 148 1304;
  Mul 1304 183 131; Mul 1305 166 80; Sub 1304 1304 1305; Add 148 148 1304; Sub 162 162 148; Mul 148 173 130;
  Mul 1304 153 60; Add 148 148 1304; Mul 1304 164 78; Add 148 148 1304; Mul 1304 74 133; Mul 1305 83 141;
  Sub 1304 1304 1305; Add 148 148 1304; Mul 148 45 148; Sub 162 162 148; Mul 1304 24 162; Add 146 146 1304;
  Add 1301 1301 146; Sub 1300 1300 1301; Mul 1301 1300 1047; Mul 146 153 600; Mul 1304 172 602;
  Add 146 146 1304; Mul 1304 185 603; Add 146 146 1304; Mul 1304 121 34; Mul 1305 138 24; Sub 1304 1304 1305;
  Mul 1305 60 137; Mul 1306 78 103; Sub 1305 1305 1306; Add 1304 1304 1305; Mul 1305 74 603; Mul 1306 83 602;
  Sub 1305 1305 1306; Sub 1304 1304 1305; Mul 1304 44 1304; Mul 1305 83 1304; Mul 1306 104 604;
  Sub 1305 1305 1306; Add 146 146 1305; Sub 1298 1298 134; Mul 134 1298 35; Mul 1305 76 103; Mul 1306 984 137;
  Add 1305 1305 1306; Add 134 134 1305; Mul 1305 179 100; Mul 1306 169 34; Mul 80 80 166; Mul 1307 131 183;
  Sub 80 80 1307; Mul 1307 74 128; Mul 1308 139 83; Add 1307 1307 1308; Mul 69 161 69; Mul 131 177 131;
  Sub 69 69 131; Add 1307 1307 69; Sub 80 80 1307; Add 80 80 148; Mul 148 80 24; Add 1306 1306 148;
  Add 1305 1305 1306; Sub 134 134 1305; Add 146 146 134; Mul 134 146 1054; Add 1301 1301 134; Mul 134 616 614;
  Mul 1305 989 619; Add 134 134 1305; Mul 1305 613 621; Add 134 134 1305; Mul 1305 542 42; Mul 1306 552 20;
  Sub 1305 1305 1306; Mul 1306 522 551; Mul 148 528 539; Sub 1306 1306 148; Add 1305 1305 1306;
  Mul 1306 623 621; Mul 148 629 619; Sub 1306 1306 148; Sub 1306 1305 1306; Mul 1306 624 1306; Mul 148 629 1306;
  Mul 1307 626 627; Sub 148 148 1307; Add 134 134 148; Mul 148 540 524; Sub 148 543 148; Mul 1307 546 526;
  Add 148 148 1307; Sub 1307 148 548; Add 1307 1307 1298; Mul 69 1307 520; Mul 131 527 539; Mul 1308 968 551;
  Add 131 131 1308; Add 69 69 131; Mul 131 587 99; Mul 1308 545 595; Sub 579 579 1308; Mul 1309 589 540;
  Add 1309 1309 559; Sub 560 560 1309; Mul 559 540 589; Add 559 559 562; Sub 550 550 559; Add 560 560 550;
  Mul 550 595 545; Sub 572 550 572; Add 560 560 572; Sub 579 579 560; Add 579 579 169; Mul 560 579 42;
  Mul 572 529 576; Mul 562 545 591; Sub 572 572 562; Mul 562 526 543].
Definition casadi_f0_45 : list instruction := [
  Mul 1310 553 531; Add 562 562 1310; Mul 1310 571 523; Mul 1311 585 545; Sub 1310 1310 1311; Add 562 562 1310;
  Sub 572 572 562; Mul 581 581 544; Mul 562 566 522; Add 581 581 562; Mul 562 574 528; Add 581 581 562;
  Mul 562 526 547; Mul 1310 531 555; Sub 562 562 1310; Add 581 581 562; Mul 581 45 581; Add 572 572 581;
  Add 572 572 80; Mul 562 572 20; Add 560 560 562; Add 131 131 560; Sub 69 69 131; Add 134 134 69;
  Mul 69 134 1055; Add 1301 1301 69; Mul 968 968 1118; Add 1301 1301 968; Mul 968 587 1056; Sub 1301 1301 968;
  Mul 968 579 1057; Sub 1301 1301 968; Mul 968 527 1160; Add 1301 1301 968; Mul 968 1307 1130;
  Add 1301 1301 968; Mul 968 616 1059; Sub 1301 1301 968; Mul 989 989 1074; Sub 1301 1301 989; Mul 989 613 1060;
  Sub 1301 1301 989; Mul 989 626 1073; Add 1301 1301 989; Mul 989 629 1074; Mul 968 646 679; Mul 69 659 671;
  Add 968 968 69; Mul 69 676 1; Sub 968 968 69; Mul 69 968 598; Mul 131 756 1; Mul 560 750 729; Mul 562 743 734;
  Add 560 560 562; Sub 131 131 560; Mul 560 131 584; Add 69 69 560; Sub 989 989 69; Mul 69 623 1060;
  Sub 989 989 69; Mul 69 740 731; Mul 560 69 599; Sub 989 989 560; Mul 624 624 989; Mul 989 629 624;
  Sub 1301 1301 989; Mul 989 572 1061; Add 1301 1301 989; Mul 989 88 1064; Sub 1301 1301 989; Mul 989 527 1075;
  Sub 1301 1301 989; Add 148 148 548; Add 148 148 1299; Mul 548 148 1068; Sub 1301 1301 548; Mul 548 633 1062;
  Sub 1301 1301 548; Mul 548 579 1063; Sub 1301 1301 548; Mul 548 588 1066; Sub 1301 1301 548; Mul 548 545 585;
  Mul 523 523 571; Sub 548 548 523; Mul 523 531 553; Mul 989 543 526; Add 523 523 989; Mul 545 591 545;
  Mul 529 576 529; Sub 545 545 529; Add 523 523 545; Sub 548 548 523; Sub 548 548 581; Add 548 548 162;
  Mul 581 548 1067; Sub 1301 1301 581; Mul 581 542 1070; Add 1301 1301 581; Mul 581 98 1072; Sub 1301 1301 581;
  Mul 581 100 89; Mul 523 34 1298; Mul 545 132 83; Mul 529 104 82; Add 529 139 529; Sub 545 545 529;
  Add 529 545 142; Mul 989 24 529; Add 523 523 989; Add 581 581 523; Mul 523 581 1047; Mul 989 89 100;
  Mul 560 1299 34; Sub 545 545 142; Mul 142 545 24; Add 560 560 142; Add 989 989 560; Sub 989 1304 989;
  Mul 560 989 1054; Sub 523 523 560; Mul 560 537 99; Mul 142 148 42; Mul 562 546 531; Mul 1310 540 530;
  Add 1310 553 1310; Sub 562 562 1310; Sub 1310 562 556; Add 1310 1310 545; Mul 1311 1310 20; Add 142 142 1311;
  Add 560 560 142; Sub 560 1306 560; Mul 142 560 1055; Sub 523 523 142; Mul 142 537 1056; Add 523 523 142;
  Mul 142 148 1057; Add 523 523 142; Add 523 523 624; Mul 142 1310 1061; Sub 523 523 142; Mul 142 537 1062;
  Add 523 523 142; Mul 142 1307 1063; Add 523 523 142; Mul 142 522 1066; Sub 523 523 142].
Definition casadi_f0_46 : list instruction := [
  Add 562 562 556; Add 562 562 529; Mul 556 562 1067; Add 523 523 556; Mul 556 528 1077; Add 523 523 556;
  Mul 556 18 523; Add 1301 1301 556; Mul 556 544 1256; Sub 1301 1301 556; Mul 556 190 1062; Mul 142 74 879;
  Mul 1311 83 698; Sub 142 142 1311; Mul 1311 173 100; Mul 1312 153 34; Add 1311 1311 1312; Mul 1312 164 24;
  Add 1311 1311 1312; Sub 142 142 1311; Mul 1311 142 1047; Sub 556 556 1311; Mul 1311 623 1065;
  Add 556 556 1311; Mul 1311 616 1063; Add 556 556 1311; Mul 1311 629 1076; Sub 556 556 1311; Mul 1311 620 1067;
  Add 556 556 1311; Mul 1311 528 556; Add 1301 1301 1311; Mul 1311 100 1175; Mul 1312 522 1214;
  Add 1312 640 1312; Add 1312 1312 1216; Mul 1216 614 1062; Mul 1313 99 1059; Sub 1216 1216 1313;
  Mul 1313 0 742; Mul 1314 660 877; Add 1313 1313 1314; Sub 1313 1154 1313; Add 1216 1216 1313;
  Sub 1221 1221 1166; Sub 1221 1221 1218; Add 1218 1216 1221; Mul 1166 544 1211; Add 1218 1218 1166;
  Sub 1312 1312 1218; Mul 1166 34 1312; Add 1311 1311 1166; Mul 1166 567 1311; Add 1301 1301 1166;
  Mul 1166 646 1019; Add 795 795 1166; Add 795 795 1156; Sub 1261 1261 1164; Sub 1261 1261 1132;
  Add 1132 1313 1261; Mul 1164 644 1027; Add 1132 1132 1164; Sub 795 795 1132; Mul 1164 1 795; Mul 1156 0 1020;
  Sub 1164 1164 1156; Mul 1156 637 1164; Add 1301 1301 1156; Mul 1156 97 1020; Mul 1166 32 795;
  Add 1156 1156 1166; Mul 1166 597 1156; Add 1301 1301 1166; Mul 1166 105 1244; Mul 1314 602 1087;
  Mul 1315 34 1096; Sub 1314 1314 1315; Add 1314 1314 640; Mul 640 60 1174; Add 1314 1314 640;
  Add 1314 1314 1176; Mul 1176 600 1086; Mul 640 100 1083; Sub 1176 1176 640; Add 1176 1176 1216;
  Sub 1181 1181 1165; Sub 1181 1181 1178; Add 1176 1176 1181; Mul 1178 130 1138; Add 1176 1176 1178;
  Sub 1314 1314 1176; Mul 1178 63 1314; Add 1166 1166 1178; Mul 1178 158 1166; Mul 1165 100 1244;
  Mul 640 34 1314; Add 1165 1165 640; Mul 640 154 1165; Add 1178 1178 640; Mul 640 129 1099; Add 1178 1178 640;
  Mul 640 185 1110; Mul 1315 35 1089; Sub 640 640 1315; Mul 1315 137 1092; Add 640 640 1315; Mul 1315 100 1238;
  Add 640 640 1315; Mul 173 173 1086; Mul 1315 74 1089; Add 173 173 1315; Mul 1315 153 1087; Add 173 173 1315;
  Mul 1315 83 1098; Sub 173 173 1315; Mul 1315 164 1090; Add 173 173 1315; Mul 1315 24 173; Sub 640 640 1315;
  Mul 1315 83 1232; Add 640 640 1315; Mul 1315 172 1174; Add 640 640 1315; Mul 1315 104 1157; Sub 640 640 1315;
  Mul 1315 153 1138; Add 640 640 1315; Mul 1315 25 1223; Sub 640 640 1315; Mul 1315 101 1117; Add 640 640 1315;
  Mul 1315 166 1141; Add 1315 1315 1315; Mul 1316 187 1104; Add 1315 1315 1316; Mul 1316 187 1109;
  Add 1315 1315 1316; Mul 1316 178 1173; Sub 1315 1315 1316; Mul 1316 183 1173; Add 1315 1315 1316;
  Mul 1316 161 1135; Sub 1315 1315 1316; Mul 1316 104 1152; Mul 1317 83 1228; Sub 1316 1316 1317;
  Mul 1317 104 1147; Sub 1316 1316 1317; Mul 1317 83 1233].
Definition casadi_f0_47 : list instruction := [
  Add 1316 1316 1317; Mul 1316 44 1316; Add 1315 1315 1316; Mul 183 183 1171; Add 1315 1315 183;
  Mul 183 178 1171; Sub 1315 1315 183; Mul 183 161 1137; Sub 1315 1315 183; Mul 183 166 1144; Sub 1315 1315 183;
  Sub 1315 1315 183; Mul 1315 45 1315; Add 640 640 1315; Mul 1315 71 640; Add 1178 1178 1315; Mul 1315 879 1083;
  Mul 183 979 1084; Sub 1315 1315 183; Mul 183 100 1095; Sub 1315 1315 183; Mul 183 83 1096; Mul 1316 1305 1047;
  Mul 1317 968 516; Add 1316 1316 1317; Mul 1317 131 518; Add 1316 1316 1317; Sub 183 183 1316;
  Mul 1316 74 1084; Sub 183 183 1316; Mul 1316 69 519; Sub 183 183 1316; Mul 183 44 183; Mul 1316 24 183;
  Add 1315 1315 1316; Mul 604 604 1086; Add 1315 1315 604; Mul 604 600 1089; Add 1315 1315 604; Mul 604 82 1228;
  Add 1315 1315 604; Mul 1152 132 1152; Sub 1315 1315 1152; Mul 1152 181 1104; Sub 1315 1315 1152;
  Mul 1147 132 1147; Add 1315 1315 1147; Mul 1147 188 1110; Sub 1315 1315 1147; Mul 1147 181 1109;
  Sub 1315 1315 1147; Mul 1147 139 1140; Sub 1315 1315 1147; Sub 1315 1315 1147; Mul 1147 128 1135;
  Sub 1315 1315 1147; Mul 1147 1304 1090; Sub 1315 1315 1147; Mul 1147 603 1092; Sub 1315 1315 1147;
  Mul 1147 82 1233; Sub 1315 1315 1147; Mul 1147 78 1232; Sub 1315 1315 1147; Add 1147 74 74; Mul 1181 44 1181;
  Mul 1152 1147 1181; Add 1315 1315 1152; Mul 133 133 1138; Add 1315 1315 133; Mul 1157 130 1157;
  Add 1315 1315 1157; Mul 1147 1147 1180; Add 1315 1315 1147; Mul 1147 128 1137; Sub 1315 1315 1147;
  Mul 1182 159 1182; Sub 1315 1315 1182; Mul 1182 881 1059; Mul 1147 981 1060; Sub 1182 1182 1147;
  Mul 1147 99 1073; Sub 1182 1182 1147; Mul 1147 20 624; Add 1182 1182 1147; Mul 627 627 1062;
  Add 1182 1182 627; Mul 1065 614 1065; Add 1182 1182 1065; Mul 1065 1306 1067; Sub 1182 1182 1065;
  Mul 1065 621 1069; Sub 1182 1182 1065; Mul 1065 888 742; Mul 627 1001 751; Sub 1065 1065 627; Mul 627 0 759;
  Sub 1065 1065 627; Mul 627 670 877; Add 1065 1065 627; Mul 627 660 878; Sub 1065 1065 627; Mul 627 665 645;
  Mul 1147 674 664; Add 627 627 1147; Sub 627 968 627; Mul 627 323 627; Mul 1147 627 966; Add 1065 1065 1147;
  Mul 1147 645 978; Sub 1065 1065 1147; Mul 1147 962 863; Mul 1180 907 865; Add 1147 1147 1180; Mul 1180 0 867;
  Add 1147 1147 1180; Mul 1180 804 884; Add 1147 1147 1180; Mul 1180 744 886; Add 1147 1147 1180;
  Mul 1180 801 749; Mul 1157 806 747; Add 1180 1180 1157; Add 1180 131 1180; Mul 1180 802 1180;
  Mul 1157 1180 868; Add 1147 1147 1157; Mul 1157 749 611; Add 1147 1147 1157; Mul 1157 934 951;
  Mul 133 741 838; Sub 1157 1157 133; Mul 133 933 753; Mul 1152 937 745; Add 133 133 1152; Sub 133 69 133;
  Mul 133 260 133; Mul 1152 133 944; Add 1157 1157 1152; Mul 1152 753 898; Sub 1157 1157 1152;
  Mul 1152 273 1157; Add 1147 1147 1152; Add 927 927 927; Mul 1125 263 1125; Mul 1152 927 1125;
  Mul 1012 917 1012; Add 1152 1152 1012; Mul 1012 918 1251].
Definition casadi_f0_48 : list instruction := [
  Mul 1012 263 1012; Add 1152 1152 1012; Mul 927 927 1191; Add 1152 1152 927; Add 1147 1147 1152;
  Mul 927 266 1147; Add 1065 1065 927; Add 786 786 786; Mul 1154 246 1154; Mul 927 786 1154; Mul 1011 796 1011;
  Sub 927 927 1011; Mul 1011 789 1250; Mul 1011 246 1011; Sub 927 927 1011; Mul 786 786 1196; Add 927 927 786;
  Sub 1065 1065 927; Mul 786 249 1065; Add 1182 1182 786; Add 656 656 656; Mul 1313 221 1313; Mul 786 656 1313;
  Mul 790 641 790; Sub 786 786 790; Mul 790 643 1249; Mul 790 221 790; Sub 786 786 790; Mul 656 656 1201;
  Add 786 786 656; Sub 1182 1182 786; Mul 656 227 1182; Add 1315 1315 656; Add 610 610 610; Mul 1216 171 1216;
  Mul 656 610 1216; Mul 1204 618 1204; Sub 656 656 1204; Mul 1204 612 1248; Mul 1204 171 1204; Sub 656 656 1204;
  Mul 610 610 1207; Add 656 656 610; Sub 1315 1315 656; Mul 610 139 1146; Add 1315 1315 610; Add 1315 1315 610;
  Mul 610 83 1252; Mul 610 44 610; Sub 1315 1315 610; Mul 610 77 1315; Add 1178 1178 610; Mul 610 62 1178;
  Add 1301 1301 610; Mul 610 100 1094; Mul 1207 89 1078; Mul 1204 989 1080; Sub 1207 1207 1204;
  Mul 1204 1299 1081; Add 1207 1207 1204; Add 1207 1207 183; Mul 1204 545 1085; Add 1207 1207 1204;
  Mul 89 89 1086; Add 1207 1207 89; Mul 89 1298 1087; Add 1207 1207 89; Mul 89 60 1089; Sub 1207 1207 89;
  Mul 89 529 1090; Add 1207 1207 89; Mul 89 78 1098; Add 1207 1207 89; Mul 89 24 1207; Sub 610 610 89;
  Mul 89 78 1223; Add 610 610 89; Mul 89 130 1117; Sub 610 610 89; Add 610 610 1315; Mul 89 29 610;
  Add 1301 1301 89; Mul 155 155 1314; Mul 89 156 1166; Add 155 155 89; Mul 89 152 1165; Add 155 155 89;
  Mul 89 124 1099; Add 155 155 89; Mul 89 157 1246; Sub 155 155 89; Mul 89 65 640; Add 155 155 89;
  Mul 89 75 1315; Add 155 155 89; Mul 89 165 1247; Add 155 155 89; Mul 89 61 155; Sub 1301 1301 89;
  Mul 89 126 1208; Add 1301 1301 89; Mul 89 593 1209; Mul 1204 520 1066; Sub 89 89 1204; Mul 1204 551 1070;
  Add 89 89 1204; Mul 1204 99 1256; Add 89 89 1204; Mul 1204 20 556; Sub 89 89 1204; Mul 1204 531 1254;
  Add 89 89 1204; Mul 582 582 1214; Add 89 89 582; Mul 582 540 1213; Sub 89 89 582; Mul 566 566 1211;
  Add 89 89 566; Mul 566 18 1253; Sub 89 89 566; Mul 566 98 1119; Add 89 89 566; Mul 566 576 1129;
  Add 566 566 566; Mul 582 595 1103; Add 566 566 582; Mul 582 595 1108; Add 566 566 582; Mul 582 586 1172;
  Sub 566 566 582; Mul 582 591 1172; Add 566 566 582; Mul 582 571 1122; Sub 566 566 582; Mul 582 540 1153;
  Mul 1204 531 1229; Sub 582 582 1204; Mul 1204 540 1148; Sub 582 582 1204; Mul 1204 531 1237; Add 582 582 1204;
  Mul 582 521 582; Add 566 566 582; Mul 591 591 1170; Add 566 566 591; Mul 591 586 1170; Sub 566 566 591;
  Mul 591 571 1136; Sub 566 566 591].
Definition casadi_f0_49 : list instruction := [
  Mul 591 576 1142; Sub 566 566 591; Sub 566 566 591; Mul 566 45 566; Add 89 89 566; Mul 566 68 89;
  Add 1301 1301 566; Mul 566 530 1229; Mul 1153 546 1153; Sub 566 566 1153; Mul 1153 589 1103; Sub 566 566 1153;
  Mul 1148 546 1148; Add 566 566 1148; Mul 1148 592 1209; Sub 566 566 1148; Mul 1148 589 1108; Sub 566 566 1148;
  Mul 1148 553 1139; Sub 566 566 1148; Sub 566 566 1148; Mul 1148 543 1122; Sub 566 566 1148; Mul 1148 530 1237;
  Sub 566 566 1148; Mul 1148 528 1254; Sub 566 566 1148; Add 1148 526 526; Mul 1221 521 1221;
  Mul 1153 1148 1221; Add 566 566 1153; Mul 547 547 1211; Add 566 566 547; Mul 1213 544 1213; Add 566 566 1213;
  Mul 1148 1148 1220; Add 566 566 1148; Mul 1148 543 1136; Sub 566 566 1148; Mul 1222 570 1222;
  Sub 566 566 1222; Mul 1182 622 1182; Add 566 566 1182; Add 566 566 656; Mul 656 553 1212; Add 566 566 656;
  Add 566 566 656; Mul 656 531 1239; Mul 656 521 656; Sub 566 566 656; Mul 656 218 566; Add 1301 1301 656;
  Mul 656 99 1072; Mul 1182 20 523; Sub 656 656 1182; Add 656 656 610; Mul 1182 528 1253; Add 656 656 1182;
  Mul 1182 544 1119; Sub 656 656 1182; Add 656 656 566; Mul 1182 19 656; Add 1301 1301 1182; Mul 1182 125 1264;
  Add 1301 1301 1182; Mul 1182 669 880; Mul 1222 703 135; Add 1182 1182 1222; Mul 1222 679 980;
  Add 1182 1182 1222; Mul 1222 0 994; Add 1182 1182 1222; Mul 1222 642 149; Add 1182 1182 1222;
  Mul 650 650 1019; Add 1182 1182 650; Mul 650 639 1149; Sub 1182 1182 650; Mul 650 662 1027; Add 1182 1182 650;
  Mul 650 11 1159; Sub 1182 1182 650; Mul 650 95 1265; Add 1182 1182 650; Mul 650 713 1034; Add 650 650 650;
  Mul 1222 705 1100; Add 650 650 1222; Mul 1222 705 1105; Add 650 650 1222; Mul 1222 708 1016; Sub 650 650 1222;
  Mul 1222 707 1016; Add 650 650 1222; Mul 1222 723 1023; Sub 650 650 1222; Mul 1222 639 106; Mul 1148 642 1230;
  Sub 1222 1222 1148; Mul 1148 639 140; Sub 1222 1222 1148; Mul 1148 642 1234; Add 1222 1222 1148;
  Mul 1222 673 1222; Add 650 650 1222; Mul 1222 707 1013; Add 650 650 1222; Mul 1222 708 1013; Sub 650 650 1222;
  Mul 1222 723 1026; Sub 650 650 1222; Mul 1222 713 1143; Add 650 650 1222; Add 650 650 1222; Mul 650 45 650;
  Add 1182 1182 650; Mul 650 66 1182; Add 1301 1301 650; Mul 650 684 1230; Mul 106 681 106; Sub 650 650 106;
  Mul 106 711 1100; Sub 650 650 106; Mul 140 681 140; Add 650 650 140; Mul 140 714 135; Sub 650 650 140;
  Mul 140 711 1105; Sub 650 650 140; Mul 140 678 1028; Sub 650 650 140; Sub 650 650 140; Mul 140 692 1023;
  Sub 650 650 140; Mul 140 684 1234; Sub 650 650 140; Mul 140 659 149; Sub 650 650 140; Add 140 655 655;
  Mul 1261 673 1261; Mul 106 140 1261; Add 650 650 106; Mul 106 693 1027; Add 650 650 106; Mul 1149 644 1149;
  Add 650 650 1149; Mul 140 140 1120; Add 650 650 140; Mul 140 692 1026].
Definition casadi_f0_50 : list instruction := [
  Sub 650 650 140; Mul 1035 712 1035; Sub 650 650 1035; Mul 1065 661 1065; Add 650 650 1065; Add 650 650 786;
  Mul 786 678 1240; Add 650 650 786; Add 650 650 786; Mul 786 642 1262; Mul 786 673 786; Sub 650 650 786;
  Mul 786 243 650; Add 1301 1301 786; Mul 786 16 1301; Add 1169 1169 786; Mul 786 0 985; Add 786 786 656;
  Mul 1065 659 1159; Add 786 786 1065; Mul 1065 644 1265; Sub 786 786 1065; Add 786 786 650; Mul 1065 12 786;
  Add 1169 1169 1065; Mul 1065 204 1164; Mul 1035 649 795; Add 1065 1065 1035; Mul 1035 632 1156;
  Add 1065 1065 1035; Mul 1035 14 656; Add 1065 1065 1035; Mul 568 568 1312; Mul 1035 102 1175; Mul 140 43 1312;
  Add 1035 1035 140; Mul 140 569 1035; Add 568 568 140; Mul 140 205 1311; Add 568 568 140; Mul 140 61 1178;
  Add 568 568 140; Mul 140 26 610; Add 568 568 140; Mul 140 62 155; Add 568 568 140; Mul 140 122 1208;
  Add 568 568 140; Mul 140 239 1225; Sub 568 568 140; Mul 140 64 89; Add 568 568 140; Mul 140 208 566;
  Add 568 568 140; Mul 140 575 1131; Add 568 568 140; Mul 140 22 568; Add 1065 1065 140; Mul 140 146 1080;
  Mul 984 984 1116; Add 140 140 984; Mul 179 179 1078; Sub 140 140 179; Mul 179 169 1081; Sub 140 140 179;
  Mul 179 76 1158; Add 140 140 179; Mul 1298 1298 1128; Add 140 140 1298; Mul 153 153 1083; Sub 140 140 153;
  Mul 172 172 1096; Sub 140 140 172; Mul 172 185 1084; Sub 140 140 172; Mul 1095 104 1095; Add 140 140 1095;
  Mul 1095 83 183; Sub 140 140 1095; Mul 1095 80 1085; Sub 140 140 1095; Mul 983 983 1088; Sub 140 140 983;
  Mul 76 76 1097; Sub 140 140 76; Mul 1299 1299 1091; Sub 140 140 1299; Mul 608 608 1086; Sub 140 140 608;
  Mul 169 169 1087; Sub 140 140 169; Mul 1089 180 1089; Sub 140 140 1089; Mul 1089 162 1090; Sub 140 140 1089;
  Mul 121 121 1092; Add 140 140 121; Mul 1094 101 1094; Sub 140 140 1094; Mul 25 25 1207; Add 140 140 25;
  Mul 1238 130 1238; Sub 140 140 1238; Mul 1238 78 173; Add 140 140 1238; Mul 1166 152 1166; Add 140 140 1166;
  Mul 151 151 1314; Add 140 140 151; Mul 1165 150 1165; Add 140 140 1165; Mul 1035 205 1035; Add 140 140 1035;
  Mul 565 565 1312; Add 140 140 565; Mul 1311 564 1311; Add 140 140 1311; Mul 1311 120 1099; Add 140 140 1311;
  Mul 1311 160 1246; Add 140 140 1311; Mul 1311 59 640; Add 140 140 1311; Mul 1315 73 1315; Add 140 140 1315;
  Mul 610 21 610; Add 140 140 610; Mul 610 163 1247; Add 140 140 610; Mul 610 116 1208; Add 140 140 610;
  Mul 610 52 89; Add 140 140 610; Mul 566 525 566; Add 140 140 566; Mul 566 573 1131; Add 140 140 566;
  Mul 566 23 140; Add 1065 1065 566; Mul 566 112 1264; Add 1065 1065 566; Mul 566 233 1183; Add 1065 1065 566;
  Mul 566 50 1182; Add 1065 1065 566; Mul 566 214 650; Add 1065 1065 566; Mul 566 590 1167; Add 1065 1065 566].
Definition casadi_f0_51 : list instruction := [
  Mul 566 15 1065; Sub 1169 1169 566; Mul 566 113 1275; Add 1169 1169 566; Mul 566 847 1268; Mul 610 737 887;
  Sub 566 566 610; Mul 610 729 1000; Sub 566 566 610; Mul 610 0 817; Add 566 566 610; Mul 610 788 1266;
  Add 566 566 610; Mul 777 777 1031; Add 566 566 777; Mul 777 794 1151; Sub 566 566 777; Mul 777 792 1037;
  Add 566 566 777; Mul 777 6 1267; Sub 566 566 777; Mul 777 92 1276; Add 566 566 777; Mul 777 842 1032;
  Add 777 777 777; Mul 610 849 1102; Add 777 777 610; Mul 610 849 1106; Add 777 777 610; Mul 610 852 1018;
  Sub 777 777 610; Mul 610 851 1018; Add 777 777 610; Mul 610 840 1021; Sub 777 777 610; Mul 610 794 1270;
  Mul 1315 788 1231; Sub 610 610 1315; Mul 1315 794 1271; Sub 610 610 1315; Mul 1315 788 1236; Add 610 610 1315;
  Mul 610 805 610; Add 777 777 610; Mul 610 851 1015; Add 777 777 610; Mul 610 852 1015; Sub 777 777 610;
  Mul 610 840 1024; Sub 777 777 610; Mul 610 842 1143; Add 777 777 610; Add 777 777 610; Mul 777 45 777;
  Add 566 566 777; Mul 777 51 566; Add 1169 1169 777; Mul 777 812 1231; Mul 1270 823 1270; Sub 777 777 1270;
  Mul 1270 855 1102; Sub 777 777 1270; Mul 1271 823 1271; Add 777 777 1271; Mul 1271 856 1268; Sub 777 777 1271;
  Mul 1271 855 1106; Sub 777 777 1271; Mul 1271 828 1029; Sub 777 777 1271; Sub 777 777 1271; Mul 1271 821 1021;
  Sub 777 777 1271; Mul 1271 812 1236; Sub 777 777 1271; Mul 1271 743 1266; Sub 777 777 1271; Add 1271 785 785;
  Mul 1274 805 1274; Mul 1270 1271 1274; Add 777 777 1270; Mul 1270 824 1037; Add 777 777 1270;
  Mul 1151 748 1151; Add 777 777 1151; Mul 1271 1271 1121; Add 777 777 1271; Mul 1271 821 1024;
  Sub 777 777 1271; Mul 1039 839 1039; Sub 777 777 1039; Mul 1147 800 1147; Add 777 777 1147; Add 777 777 927;
  Mul 927 828 1242; Add 777 777 927; Add 777 777 927; Mul 927 788 1278; Mul 927 805 927; Sub 777 777 927;
  Mul 927 259 777; Add 1169 1169 927; Mul 927 8 1169; Add 1150 1150 927; Mul 927 203 1162; Mul 1147 776 916;
  Add 927 927 1147; Mul 1147 775 1297; Add 927 927 1147; Mul 1147 15 1301; Add 927 927 1147; Mul 1147 7 786;
  Add 927 927 1147; Mul 1147 16 1065; Add 927 927 1147; Mul 1147 110 1275; Sub 927 927 1147; Mul 1147 255 1277;
  Add 927 927 1147; Mul 1147 48 566; Add 927 927 1147; Mul 1147 247 777; Add 927 927 1147; Mul 1147 781 1279;
  Add 927 927 1147; Mul 1147 9 927; Add 1150 1150 1147; Mul 1147 943 1281; Mul 1039 735 961; Add 1147 1147 1039;
  Mul 1039 893 1281; Sub 1271 1241 1235; Mul 1271 45 1271; Add 1039 1039 1271; Mul 1271 904 1038;
  Sub 1039 1039 1271; Mul 1039 763 1039; Mul 1271 904 1039; Sub 1147 1147 1271; Mul 922 922 1038;
  Add 1147 1147 922; Mul 922 891 1163; Add 1147 1147 922; Mul 922 931 1041; Add 1147 1147 922; Mul 922 0 1049;
  Add 1147 1147 922; Mul 922 948 1101; Mul 1271 942 1033].
Definition casadi_f0_52 : list instruction := [
  Add 1271 1271 1271; Sub 922 922 1271; Mul 1271 948 1107; Add 922 922 1271; Mul 1271 950 1017;
  Add 922 922 1271; Mul 1271 946 1017; Sub 922 922 1271; Mul 1271 956 1022; Add 922 922 1271; Mul 1271 0 909;
  Mul 1121 735 951; Add 1151 1271 1121; Sub 1270 1288 1151; Mul 610 893 1270; Mul 1315 891 1290;
  Sub 610 610 1315; Mul 1315 893 1288; Sub 610 610 1315; Sub 1151 1151 1288; Mul 1311 893 1151;
  Add 610 610 1311; Add 610 610 1315; Mul 1315 891 1289; Sub 610 610 1315; Add 1235 1235 1241;
  Mul 1241 904 1235; Add 610 610 1241; Mul 610 763 610; Add 922 922 610; Mul 610 946 1014; Sub 922 922 610;
  Mul 610 950 1014; Add 922 922 610; Mul 610 956 1025; Add 922 922 610; Mul 610 942 1143; Add 922 922 610;
  Add 922 922 610; Mul 922 45 922; Add 1147 1147 922; Mul 922 1 961; Sub 922 1039 922; Mul 610 893 1101;
  Mul 1241 893 1107; Add 610 610 1241; Mul 1241 904 1017; Add 610 610 1241; Sub 610 610 1235; Mul 1241 904 1014;
  Add 610 610 1241; Mul 1241 891 1188; Add 610 610 1241; Add 610 610 1241; Mul 610 763 610; Mul 610 45 610;
  Add 922 922 610; Mul 922 2 922; Add 1147 1147 922; Mul 922 47 1147; Add 1150 1150 922; Mul 922 5 1150;
  Add 517 517 922; Mul 922 1 1186; Mul 610 0 1040; Sub 922 922 610; Mul 610 276 922; Mul 1241 921 1186;
  Add 610 610 1241; Mul 1241 912 1185; Add 610 610 1241; Mul 1241 9 1169; Sub 610 610 1241; Mul 1241 0 687;
  Add 1241 1241 786; Mul 786 743 1267; Add 1241 1241 786; Mul 786 748 1276; Sub 1241 1241 786;
  Add 1241 1241 777; Mul 786 3 1241; Add 610 610 786; Mul 786 8 927; Add 610 610 786; Mul 786 911 1282;
  Add 610 610 786; Mul 786 49 1147; Sub 610 610 786; Mul 786 895 1290; Mul 1315 936 1101; Add 786 786 1315;
  Mul 1315 890 1270; Add 786 786 1315; Mul 1288 890 1288; Sub 786 786 1288; Mul 1315 890 1151; Add 786 786 1315;
  Add 786 786 1288; Mul 1288 895 1289; Add 786 786 1288; Mul 1288 952 1281; Add 786 786 1288; Mul 1288 936 1107;
  Add 786 786 1288; Mul 1288 940 1030; Add 786 786 1288; Add 786 786 1288; Mul 1288 903 1235; Sub 786 786 1288;
  Mul 1288 740 1039; Add 786 786 1288; Add 1288 893 893; Mul 1296 763 1296; Mul 1315 1288 1296;
  Add 786 786 1315; Mul 1315 896 1041; Sub 786 786 1315; Mul 1315 752 1163; Sub 786 786 1315;
  Mul 1288 1288 1295; Add 786 786 1288; Mul 1042 941 1042; Sub 786 786 1042; Mul 1157 930 1157;
  Add 786 786 1157; Sub 786 786 1152; Mul 1152 904 1283; Mul 1152 763 1152; Sub 786 786 1152;
  Add 1188 1033 1188; Mul 1152 940 1188; Sub 786 786 1152; Sub 786 786 1152; Mul 1152 278 786; Add 610 610 1152;
  Mul 1152 4 610; Add 517 517 1152; Mul 1152 913 1281; Mul 1157 731 961; Sub 1152 1152 1157; Mul 1157 931 1038;
  Add 1152 1152 1157; Mul 1157 904 1293; Sub 1152 1152 1157; Mul 1163 893 1163; Sub 1152 1152 1163;
  Mul 1163 920 1041; Add 1152 1152 1163; Mul 1163 1 1049].
Definition casadi_f0_53 : list instruction := [
  Add 1152 1152 1163; Mul 1163 948 1030; Mul 1157 942 1101; Mul 1042 942 1107; Add 1157 1157 1042;
  Sub 1157 1163 1157; Add 1157 1157 1163; Mul 1163 956 1017; Add 1157 1157 1163; Mul 1163 945 1022;
  Sub 1157 1157 1163; Mul 1163 950 1022; Add 1157 1157 1163; Mul 1290 893 1290; Mul 1289 893 1289;
  Add 1290 1290 1289; Mul 1289 904 1292; Add 1290 1290 1289; Mul 1290 763 1290; Add 1157 1157 1290;
  Mul 1290 956 1014; Add 1157 1157 1290; Mul 1290 950 1025; Add 1157 1157 1290; Mul 1290 945 1025;
  Sub 1157 1157 1290; Mul 1290 948 1143; Sub 1157 1157 1290; Sub 1157 1157 1290; Mul 1157 45 1157;
  Add 1152 1152 1157; Mul 1157 0 961; Add 1157 1157 1293; Mul 1290 893 1030; Mul 1289 891 1101;
  Mul 1163 891 1107; Add 1289 1289 1163; Sub 1289 1290 1289; Add 1289 1289 1290; Mul 1290 904 1022;
  Add 1289 1289 1290; Sub 1289 1289 1292; Mul 1290 904 1025; Add 1289 1289 1290; Mul 1188 893 1188;
  Sub 1289 1289 1188; Sub 1289 1289 1188; Mul 1289 763 1289; Mul 1289 45 1289; Add 1157 1157 1289;
  Mul 1157 2 1157; Add 1152 1152 1157; Mul 1157 54 1152; Sub 517 517 1157; Mul 517 1 517; Mul 1157 1300 518;
  Mul 1289 1300 516; Sub 1157 1157 1289; Mul 1289 1300 519; Sub 1157 1157 1289; Mul 1289 520 148;
  Mul 527 539 527; Mul 88 551 88; Add 527 527 88; Add 1289 1289 527; Mul 527 99 633; Mul 88 42 579;
  Mul 1188 20 548; Add 88 88 1188; Add 527 527 88; Sub 1289 1289 527; Mul 527 1289 598; Sub 1157 1157 527;
  Mul 527 1289 584; Add 1157 1157 527; Mul 527 1289 599; Sub 1157 1157 527; Mul 527 146 182; Sub 1157 1157 527;
  Mul 527 134 628; Sub 1157 1157 527; Mul 527 658 645; Mul 88 663 660; Mul 1188 988 664; Add 88 88 1188;
  Sub 527 527 88; Mul 88 674 627; Mul 670 672 670; Sub 88 88 670; Add 527 527 88; Mul 88 975 679;
  Mul 670 696 671; Sub 88 88 670; Mul 670 639 690; Sub 670 692 670; Mul 1188 681 655; Add 670 670 1188;
  Sub 1188 670 694; Add 1188 1188 1307; Mul 1290 1188 669; Sub 88 88 1290; Mul 1290 680 705; Sub 727 727 1290;
  Mul 1163 711 639; Add 1163 1163 718; Sub 719 719 1163; Mul 718 639 711; Add 718 718 721; Sub 716 716 718;
  Add 719 719 716; Mul 716 705 680; Sub 724 716 724; Add 719 719 724; Sub 727 727 719; Add 727 727 579;
  Mul 579 727 1; Mul 719 728 0; Sub 579 579 719; Add 88 88 579; Add 527 527 88; Mul 88 527 688;
  Sub 1157 1157 88; Mul 88 679 535; Mul 579 671 696; Sub 88 88 579; Add 670 670 694; Add 670 670 148;
  Mul 148 669 670; Sub 88 88 148; Mul 148 1 727; Mul 694 0 706; Sub 148 148 694; Add 88 88 148; Mul 148 88 710;
  Add 1157 1157 148; Mul 975 975 730; Add 1157 1157 975; Mul 975 696 733; Add 1157 1157 975; Mul 975 1188 736;
  Add 1157 1157 975; Mul 728 728 738; Add 1157 1157 728; Mul 728 88 732; Sub 1157 1157 728; Mul 728 727 739;
  Add 1157 1157 728; Mul 728 663 742; Add 1157 1157 728].
Definition casadi_f0_54 : list instruction := [
  Mul 988 988 746; Add 1157 1157 988; Mul 988 658 751; Add 1157 1157 988; Mul 759 672 759; Sub 1157 1157 759;
  Mul 759 674 746; Mul 988 131 710; Sub 759 759 988; Mul 751 665 751; Sub 759 759 751; Mul 751 69 732;
  Sub 759 759 751; Mul 759 323 759; Mul 751 674 759; Add 1157 1157 751; Mul 751 683 713; Mul 988 680 707;
  Sub 751 751 988; Mul 988 655 692; Mul 728 678 642; Add 988 988 728; Mul 728 723 689; Mul 975 709 680;
  Sub 728 728 975; Add 988 988 728; Sub 751 751 988; Mul 648 648 644; Mul 662 662 646; Add 648 648 662;
  Mul 662 635 659; Add 648 648 662; Mul 693 655 693; Mul 662 642 685; Sub 693 693 662; Add 648 648 693;
  Mul 648 45 648; Add 751 751 648; Add 751 751 572; Mul 693 751 767; Sub 1157 1157 693; Mul 693 146 770;
  Add 1157 1157 693; Mul 693 134 771; Add 1157 1157 693; Mul 693 527 772; Add 1157 1157 693; Mul 535 535 773;
  Add 1157 1157 535; Mul 535 793 744; Mul 773 1009 747; Add 535 535 773; Mul 773 829 749; Sub 535 535 773;
  Mul 773 806 1180; Mul 804 803 804; Sub 773 773 804; Add 535 535 773; Mul 773 794 809; Sub 773 821 773;
  Mul 804 823 785; Add 773 773 804; Sub 804 773 825; Add 804 804 1188; Mul 693 804 737; Mul 662 810 734;
  Mul 1004 1004 729; Sub 662 662 1004; Add 693 693 662; Mul 662 862 0; Mul 1004 822 849; Sub 845 845 1004;
  Mul 988 855 794; Add 988 988 834; Sub 835 835 988; Mul 834 794 855; Add 834 834 837; Sub 827 827 834;
  Add 835 835 827; Mul 827 849 822; Sub 841 827 841; Add 835 835 841; Sub 845 845 835; Add 845 845 727;
  Mul 835 845 1; Sub 662 662 835; Add 693 693 662; Add 535 535 693; Mul 693 535 819; Add 1157 1157 693;
  Mul 846 1005 846; Sub 1157 1157 846; Mul 846 810 858; Sub 1157 1157 846; Mul 846 804 859; Sub 1157 1157 846;
  Mul 862 862 861; Sub 1157 1157 862; Add 773 773 825; Add 773 773 670; Mul 825 737 773; Mul 862 734 810;
  Mul 1005 729 1005; Sub 862 862 1005; Add 825 825 862; Mul 862 0 850; Mul 1005 1 845; Sub 862 862 1005;
  Add 825 825 862; Mul 862 825 299; Sub 1157 1157 862; Mul 862 845 854; Add 1157 1157 862; Mul 862 793 863;
  Sub 1157 1157 862; Mul 1009 1009 864; Sub 1157 1157 1009; Mul 1009 829 865; Add 1157 1157 1009;
  Mul 867 803 867; Add 1157 1157 867; Mul 867 806 864; Mul 865 801 865; Add 867 867 865; Mul 865 69 299;
  Sub 867 867 865; Mul 802 802 867; Mul 867 806 802; Sub 1157 1157 867; Mul 867 811 842; Mul 865 822 851;
  Sub 867 867 865; Mul 865 785 821; Mul 1009 828 788; Add 865 865 1009; Mul 1009 840 808; Mul 862 853 822;
  Sub 1009 1009 862; Add 865 865 1009; Sub 867 867 865; Mul 774 774 748; Mul 792 792 750; Add 774 774 792;
  Mul 792 797 743; Add 774 774 792; Mul 824 785 824; Mul 792 788 830; Sub 824 824 792; Add 774 774 824].
Definition casadi_f0_55 : list instruction := [
  Mul 774 45 774; Add 867 867 774; Add 867 867 751; Mul 824 867 869; Add 1157 1157 824; Mul 824 146 872;
  Sub 1157 1157 824; Mul 824 134 873; Sub 1157 1157 824; Mul 696 696 874; Add 1157 1157 696; Mul 696 670 876;
  Add 1157 1157 696; Mul 706 706 877; Add 1157 1157 706; Mul 706 527 875; Sub 1157 1157 706; Mul 727 727 722;
  Add 1157 1157 727; Mul 666 666 880; Add 1157 1157 666; Mul 810 810 882; Sub 1157 1157 810; Mul 810 773 883;
  Sub 1157 1157 810; Mul 850 850 884; Sub 1157 1157 850; Mul 850 535 668; Sub 1157 1157 850; Mul 850 845 885;
  Sub 1157 1157 850; Mul 761 761 887; Sub 1157 1157 761; Mul 900 901 900; Add 1157 1157 900; Mul 900 895 893;
  Mul 761 891 890; Sub 900 900 761; Sub 761 900 897; Add 761 761 773; Mul 909 761 909; Add 1157 1157 909;
  Mul 939 939 951; Add 1157 1157 939; Mul 939 929 753; Mul 909 932 741; Mul 1046 1046 745; Add 909 909 1046;
  Sub 939 939 909; Mul 909 937 133; Mul 934 935 934; Sub 909 909 934; Add 939 939 909; Mul 909 894 948;
  Sub 960 960 909; Mul 934 936 891; Sub 934 953 934; Sub 1046 954 934; Mul 850 891 936; Sub 954 954 850;
  Sub 953 953 954; Add 1046 1046 953; Mul 953 948 894; Sub 957 953 957; Add 1046 1046 957; Sub 960 960 1046;
  Add 960 960 845; Mul 845 960 1; Mul 955 955 0; Sub 845 845 955; Add 900 900 897; Add 900 900 804;
  Mul 897 900 735; Mul 901 901 731; Add 897 897 901; Sub 845 845 897; Add 939 939 845; Mul 845 939 899;
  Sub 1157 1157 845; Mul 960 960 949; Sub 1157 1157 960; Mul 765 765 961; Sub 1157 1157 765; Mul 765 902 942;
  Mul 960 894 950; Sub 765 765 960; Mul 960 940 904; Mul 845 956 889; Mul 897 945 894; Sub 845 845 897;
  Add 960 960 845; Sub 765 765 960; Mul 920 920 752; Mul 931 931 754; Add 920 920 931; Mul 931 913 740;
  Add 920 920 931; Mul 896 893 896; Mul 931 904 925; Add 896 896 931; Sub 920 920 896; Mul 920 45 920;
  Add 765 765 920; Add 765 765 867; Mul 896 765 963; Sub 1157 1157 896; Mul 896 680 709; Mul 689 689 723;
  Sub 896 896 689; Mul 689 642 678; Mul 931 692 655; Add 689 689 931; Mul 707 707 680; Mul 683 713 683;
  Sub 707 707 683; Add 689 689 707; Sub 896 896 689; Sub 896 896 648; Add 896 896 548; Mul 648 896 966;
  Sub 1157 1157 648; Mul 676 676 980; Sub 1157 1157 676; Mul 985 95 985; Add 1157 1157 985; Mul 182 989 182;
  Mul 985 581 516; Mul 676 99 537; Mul 1307 42 1307; Mul 648 20 562; Add 1307 1307 648; Add 676 676 1307;
  Mul 1307 676 598; Add 985 985 1307; Sub 182 182 985; Mul 628 560 628; Add 182 182 628; Mul 628 670 1;
  Mul 985 702 0; Sub 628 628 985; Add 628 627 628; Mul 688 628 688; Add 182 182 688; Mul 688 702 738;
  Sub 182 182 688; Mul 670 670 739; Sub 182 182 670; Sub 182 182 759; Mul 670 681 642].
Definition casadi_f0_56 : list instruction := [
  Mul 688 639 684; Add 688 678 688; Sub 670 670 688; Sub 688 670 686; Add 688 688 1310; Mul 985 688 767;
  Add 182 182 985; Mul 985 702 877; Sub 182 182 985; Mul 985 1188 722; Sub 182 182 985; Mul 880 646 880;
  Add 182 182 880; Add 670 670 686; Add 670 670 562; Mul 686 670 966; Add 182 182 686; Mul 686 659 700;
  Add 182 182 686; Mul 11 11 182; Add 1157 1157 11; Mul 516 142 516; Mul 11 623 881; Mul 686 629 701;
  Sub 11 11 686; Mul 686 190 99; Mul 880 616 42; Add 686 686 880; Mul 880 620 20; Add 686 686 880;
  Sub 11 11 686; Mul 598 11 598; Add 516 516 598; Mul 598 654 877; Sub 516 516 598; Mul 878 665 878;
  Sub 516 516 878; Mul 878 663 722; Sub 516 516 878; Mul 878 674 534; Add 516 516 878; Mul 878 638 966;
  Add 516 516 878; Mul 878 659 516; Add 1157 1157 878; Mul 994 644 994; Add 1157 1157 994; Mul 994 822 853;
  Mul 808 808 840; Sub 994 994 808; Mul 808 788 828; Mul 878 821 785; Add 808 808 878; Mul 851 851 822;
  Mul 811 842 811; Sub 851 851 811; Add 808 808 851; Sub 994 994 808; Sub 994 994 774; Add 994 994 896;
  Mul 774 994 868; Add 1157 1157 774; Mul 756 756 1000; Add 1157 1157 756; Mul 687 92 687; Add 1157 1157 687;
  Mul 687 581 518; Mul 756 676 584; Add 687 687 756; Mul 1188 1 1188; Mul 702 0 702; Sub 1188 1188 702;
  Mul 702 1188 710; Sub 687 687 702; Mul 770 989 770; Sub 687 687 770; Mul 771 560 771; Sub 687 687 771;
  Mul 772 628 772; Sub 687 687 772; Mul 772 818 0; Mul 771 773 1; Sub 772 772 771; Add 772 1180 772;
  Mul 819 772 819; Sub 687 687 819; Mul 819 818 861; Add 687 687 819; Mul 773 773 854; Sub 687 687 773;
  Add 687 687 802; Mul 773 823 788; Mul 819 794 812; Add 819 828 819; Sub 773 773 819; Sub 819 773 831;
  Add 819 819 688; Mul 771 819 869; Sub 687 687 771; Mul 771 818 884; Add 687 687 771; Mul 771 804 885;
  Add 687 687 771; Mul 887 750 887; Sub 687 687 887; Add 773 773 831; Add 773 773 670; Mul 831 773 868;
  Sub 687 687 831; Mul 831 743 832; Add 687 687 831; Mul 6 6 687; Add 1157 1157 6; Mul 817 748 817;
  Add 1157 1157 817; Mul 817 784 884; Mul 518 142 518; Mul 584 11 584; Add 518 518 584; Mul 663 663 1;
  Mul 654 654 0; Sub 663 663 654; Mul 654 665 888; Mul 674 674 816; Sub 654 654 674; Add 663 663 654;
  Mul 710 663 710; Add 518 518 710; Sub 817 817 518; Mul 886 801 886; Add 817 817 886; Mul 886 793 885;
  Add 817 817 886; Mul 886 806 815; Sub 817 817 886; Mul 886 799 868; Sub 817 817 886; Mul 886 743 817;
  Add 1157 1157 886; Mul 886 894 945; Mul 889 889 956; Sub 886 886 889; Mul 889 904 940; Mul 950 950 894;
  Mul 902 942 902; Sub 950 950 902; Add 889 889 950; Sub 886 886 889; Sub 886 886 920].
Definition casadi_f0_57 : list instruction := [
  Add 886 886 994; Mul 920 886 944; Sub 1157 1157 920; Mul 651 651 795; Add 1157 1157 651; Mul 652 652 1164;
  Add 1157 1157 652; Mul 1156 204 1156; Add 1157 1157 1156; Mul 779 779 916; Add 1157 1157 779;
  Mul 780 780 1162; Add 1157 1157 780; Mul 1297 203 1297; Add 1157 1157 1297; Mul 923 923 1186;
  Add 1157 1157 923; Mul 924 924 922; Add 1157 1157 924; Mul 1185 276 1185; Add 1157 1157 1185;
  Mul 1185 1188 732; Mul 924 581 519; Mul 922 676 599; Add 924 924 922; Sub 1185 1185 924; Mul 818 0 818;
  Mul 804 1 804; Sub 818 818 804; Mul 804 818 299; Add 1185 1185 804; Mul 872 989 872; Add 1185 1185 872;
  Mul 873 560 873; Add 1185 1185 873; Mul 875 628 875; Add 1185 1185 875; Mul 668 772 668; Add 1185 1185 668;
  Mul 761 761 1; Mul 668 908 0; Sub 761 761 668; Add 761 133 761; Mul 899 761 899; Add 1185 1185 899;
  Mul 908 908 951; Sub 1185 1185 908; Mul 900 900 949; Add 1185 1185 900; Mul 961 754 961; Add 1185 1185 961;
  Mul 961 895 904; Mul 900 891 903; Add 900 940 900; Sub 961 961 900; Mul 900 45 925; Sub 908 961 900;
  Add 908 908 819; Mul 963 908 963; Add 1185 1185 963; Add 961 961 900; Add 961 961 773; Mul 900 961 944;
  Add 1185 1185 900; Mul 900 698 519; Mul 963 701 599; Add 900 900 963; Mul 963 816 732; Add 900 900 963;
  Mul 963 1052 299; Add 900 900 963; Sub 900 900 1050; Mul 963 740 900; Add 1185 1185 963; Mul 2 2 1185;
  Add 1157 1157 2; Mul 519 142 519; Mul 599 11 599; Add 519 519 599; Mul 732 663 732; Add 519 519 732;
  Mul 784 784 0; Mul 793 793 1; Sub 784 784 793; Mul 793 801 962; Mul 806 806 1052; Sub 793 793 806;
  Add 784 784 793; Mul 299 784 299; Add 519 519 299; Mul 926 926 951; Sub 519 519 926; Mul 838 933 838;
  Sub 519 519 838; Mul 932 932 949; Add 519 519 932; Mul 937 937 1050; Add 519 519 937; Mul 944 915 944;
  Add 519 519 944; Mul 944 740 519; Add 1157 1157 944; Mul 1049 752 1049; Add 1157 1157 1049; Mul 656 40 656;
  Add 1157 1157 656; Mul 656 23 568; Add 1157 1157 656; Mul 656 22 140; Sub 1157 1157 656; Mul 118 118 1264;
  Add 1157 1157 118; Mul 287 287 1183; Sub 1157 1157 287; Mul 287 57 1182; Add 1157 1157 287; Mul 650 229 650;
  Add 1157 1157 650; Mul 636 636 1167; Add 1157 1157 636; Mul 117 117 1275; Add 1157 1157 117; Mul 300 300 1277;
  Sub 1157 1157 300; Mul 56 56 566; Add 1157 1157 56; Mul 777 252 777; Add 1157 1157 777; Mul 1241 37 1241;
  Add 1157 1157 1241; Mul 798 798 1279; Add 1157 1157 798; Mul 914 914 1282; Sub 1157 1157 914;
  Mul 306 306 1284; Sub 1157 1157 306; Mul 306 54 1147; Add 1157 1157 306; Mul 786 264 786; Add 1157 1157 786;
  Mul 921 921 1040; Mul 1184 3 1184; Add 921 921 1184; Mul 1184 12 1168; Mul 1040 90 1047; Mul 786 601 1054;
  Add 1040 1040 786; Mul 786 615 1055; Add 1040 1040 786].
Definition casadi_f0_58 : list instruction := [
  Mul 554 554 1118; Add 1040 1040 554; Mul 554 563 1056; Sub 1040 1040 554; Mul 633 633 1057; Sub 1040 1040 633;
  Mul 541 541 1160; Add 1040 1040 541; Mul 541 537 1130; Add 1040 1040 541; Mul 190 190 1059; Sub 1040 1040 190;
  Mul 616 616 1074; Sub 1040 1040 616; Mul 616 620 1060; Sub 1040 1040 616; Mul 629 629 1058; Add 1040 1040 629;
  Mul 1073 623 1073; Sub 1040 1040 1073; Mul 1073 634 1061; Add 1040 1040 1073; Mul 557 557 1064;
  Sub 1040 1040 557; Mul 549 549 1075; Sub 1040 1040 549; Mul 537 537 1068; Sub 1040 1040 537; Mul 563 563 1062;
  Sub 1040 1040 563; Mul 587 587 1063; Sub 1040 1040 587; Mul 1066 552 1066; Add 1040 1040 1066;
  Mul 1066 596 1067; Sub 1040 1040 1066; Mul 18 18 928; Sub 1040 1040 18; Mul 1072 39 1072; Add 1040 1040 1072;
  Mul 542 542 1077; Sub 1040 1040 542; Mul 1256 522 1256; Add 1040 1040 1256; Mul 1256 528 1257;
  Sub 1040 1040 1256; Mul 1093 29 1093; Add 1040 1040 1093; Mul 1093 62 1224; Add 1040 1040 1093;
  Mul 1093 61 1245; Sub 1040 1040 1093; Mul 1093 126 1253; Add 1040 1040 1093; Mul 1161 218 1161;
  Add 1040 1040 1161; Mul 1161 19 1071; Add 1040 1040 1161; Mul 1161 68 1255; Add 1040 1040 1161;
  Mul 1161 125 1159; Add 1040 1040 1161; Mul 1161 243 143; Add 1040 1040 1161; Mul 1161 66 1263;
  Add 1040 1040 1161; Mul 1161 16 1040; Add 1184 1184 1161; Mul 649 649 1020; Mul 1071 14 1071;
  Add 649 649 1071; Mul 1071 22 1215; Add 649 649 1071; Mul 1071 23 1258; Add 649 649 1071; Mul 1071 112 1159;
  Add 649 649 1071; Mul 143 214 143; Add 649 649 143; Mul 143 590 1183; Add 649 649 143; Mul 143 233 1167;
  Sub 649 649 143; Mul 143 50 1263; Add 649 649 143; Mul 143 15 649; Sub 1184 1184 143; Mul 143 113 1267;
  Add 1184 1184 143; Mul 143 259 1269; Add 1184 1184 143; Mul 143 51 1280; Add 1184 1184 143; Mul 143 9 1184;
  Sub 921 921 143; Mul 776 776 1036; Mul 1168 7 1168; Add 776 776 1168; Mul 1168 15 1040; Add 776 776 1168;
  Mul 1168 16 649; Add 776 776 1168; Mul 1168 110 1267; Sub 776 776 1168; Mul 1269 247 1269; Add 776 776 1269;
  Mul 1269 781 1277; Add 776 776 1269; Mul 1269 255 1279; Sub 776 776 1269; Mul 1269 48 1280; Add 776 776 1269;
  Mul 1269 8 776; Add 921 921 1269; Mul 1269 911 1284; Add 921 921 1269; Mul 1291 278 1291; Add 921 921 1291;
  Mul 1291 49 1152; Sub 921 921 1291; Mul 1291 4 921; Add 1157 1157 1291; Mul 1291 8 1184; Mul 1269 9 776;
  Add 1291 1291 1269; Mul 1269 47 1152; Add 1291 1291 1269; Mul 1269 5 1291; Add 1157 1157 1269;
  Mul 1157 0 1157; Sub 517 517 1157; Out 0 0 517; Lit 517 98100000000000005 16; Mul 1157 517 4;
  Mul 1269 763 1157; Mul 1168 264 1269; Mul 143 517 5; Mul 1071 9 143; Mul 1161 8 1157; Add 1071 1071 1161;
  Mul 1161 805 1071; Mul 1093 252 1161; Mul 1256 9 1157; Mul 542 8 143; Sub 1256 1256 542; Mul 542 15 1256;
  Mul 1072 16 1071; Add 542 542 1072; Mul 1072 673 542].
Definition casadi_f0_59 : list instruction := [
  Mul 18 229 1072; Mul 1066 521 542; Mul 587 208 1066; Mul 563 16 1256; Mul 537 15 1071; Sub 563 563 537;
  Mul 537 22 563; Mul 549 521 537; Mul 557 218 549; Sub 587 587 557; Mul 557 61 537; Mul 1073 62 542;
  Add 557 557 1073; Mul 557 44 557; Mul 1073 75 557; Mul 629 62 537; Mul 616 61 542; Sub 629 629 616;
  Mul 629 44 629; Mul 616 77 629; Sub 1073 1073 616; Mul 616 62 557; Mul 190 61 629; Sub 616 616 190;
  Mul 190 26 616; Mul 541 62 629; Mul 633 61 557; Add 541 541 633; Mul 633 29 541; Sub 190 190 633;
  Add 190 1073 190; Add 587 587 190; Mul 190 23 587; Mul 633 23 563; Mul 554 521 633; Mul 786 218 554;
  Mul 306 525 1066; Sub 786 786 306; Mul 633 44 633; Mul 306 77 633; Mul 914 73 557; Sub 306 306 914;
  Mul 914 62 306; Mul 798 73 629; Mul 1241 75 633; Sub 798 798 1241; Mul 1241 61 798; Add 914 914 1241;
  Mul 1241 29 633; Mul 777 21 616; Sub 1241 1241 777; Add 914 914 1241; Add 786 786 914; Mul 914 22 786;
  Add 190 190 914; Add 1066 1066 616; Mul 616 40 1066; Add 914 549 541; Mul 1241 23 914; Add 777 554 633;
  Mul 56 22 777; Sub 1241 1241 56; Mul 56 19 1241; Sub 616 616 56; Add 190 190 616; Add 18 18 190;
  Mul 190 16 18; Mul 549 525 549; Mul 554 208 554; Sub 549 549 554; Mul 554 62 798; Mul 616 61 306;
  Sub 554 554 616; Mul 541 21 541; Mul 633 26 633; Sub 541 541 633; Add 554 554 541; Add 549 549 554;
  Mul 554 14 1241; Mul 541 23 777; Mul 633 22 914; Add 541 541 633; Mul 633 40 541; Sub 554 554 633;
  Add 554 549 554; Mul 633 673 563; Mul 616 229 633; Sub 554 554 616; Mul 616 15 554; Add 190 190 616;
  Mul 616 12 1241; Sub 190 190 616; Add 1093 1093 190; Mul 190 8 1093; Mul 616 16 554; Mul 56 15 18;
  Sub 616 616 56; Mul 56 7 1241; Add 616 616 56; Mul 56 805 1256; Mul 300 252 56; Sub 616 616 300;
  Mul 300 9 616; Sub 190 190 300; Add 300 633 541; Mul 117 16 300; Add 636 1072 1066; Mul 650 15 636;
  Add 117 117 650; Add 650 56 117; Mul 287 9 650; Mul 118 16 636; Mul 656 15 300; Sub 118 118 656;
  Add 656 1161 118; Mul 1049 8 656; Add 287 287 1049; Mul 1049 37 287; Add 190 190 1049; Add 1168 1168 190;
  Mul 190 1168 766; Mul 1049 5 766; Mul 944 8 1049; Mul 937 4 766; Mul 932 9 937; Sub 944 944 932;
  Mul 932 15 944; Mul 838 9 1049; Mul 926 8 937; Add 838 838 926; Mul 926 16 838; Sub 932 932 926;
  Add 926 580 932; Mul 299 21 926; Sub 793 768 870; Sub 806 793 605; Mul 732 19 806; Mul 599 12 793;
  Mul 2 3 870; Mul 1185 37 1049; Add 2 2 1185; Mul 1185 9 2; Mul 963 37 937; Mul 899 8 963; Add 1185 1185 899;
  Add 599 599 1185; Mul 899 16 599; Mul 668 8 2; Mul 875 9 963].
Definition casadi_f0_60 : list instruction := [
  Sub 668 668 875; Mul 875 7 793; Sub 875 668 875; Mul 873 15 875; Sub 899 899 873; Add 732 732 899;
  Mul 873 40 932; Sub 732 732 873; Mul 873 22 732; Mul 872 14 932; Mul 804 3 937; Mul 924 7 838;
  Add 804 804 924; Mul 924 12 944; Add 804 804 924; Sub 872 872 804; Mul 804 15 838; Mul 924 16 944;
  Add 804 804 924; Mul 924 19 804; Sub 872 872 924; Mul 924 23 872; Add 873 873 924; Add 299 299 873;
  Mul 924 23 804; Mul 922 22 806; Sub 924 924 922; Mul 922 29 924; Sub 299 299 922; Mul 922 61 299;
  Mul 923 23 806; Mul 1186 22 804; Add 923 923 1186; Mul 1186 62 923; Mul 1297 61 926; Sub 1186 1186 1297;
  Mul 1297 73 1186; Sub 922 922 1297; Mul 1297 16 875; Mul 780 15 599; Add 1297 1297 780; Mul 780 14 806;
  Sub 780 1297 780; Mul 1162 40 804; Add 780 780 1162; Mul 1162 21 923; Sub 1162 780 1162; Mul 779 26 924;
  Add 1162 1162 779; Mul 779 62 1162; Add 922 922 779; Add 779 380 924; Mul 916 75 779; Add 922 922 916;
  Mul 922 44 922; Mul 916 62 922; Mul 1156 62 926; Mul 652 61 923; Add 1156 1156 652; Mul 652 73 1156;
  Mul 1164 62 299; Add 652 652 1164; Mul 1164 61 1162; Sub 652 652 1164; Mul 779 77 779; Sub 652 652 779;
  Mul 652 44 652; Mul 779 61 652; Sub 916 916 779; Mul 779 525 923; Sub 780 780 779; Mul 779 208 924;
  Add 780 780 779; Mul 780 521 780; Add 916 916 780; Mul 780 214 806; Sub 1297 1297 780; Mul 780 229 804;
  Add 1297 1297 780; Mul 1297 673 1297; Add 916 916 1297; Mul 1297 16 916; Mul 780 243 806; Add 780 780 899;
  Mul 229 229 932; Sub 780 780 229; Mul 780 673 780; Mul 229 23 732; Mul 932 22 872; Sub 229 229 932;
  Mul 932 26 926; Sub 932 229 932; Mul 899 29 923; Add 932 932 899; Mul 1156 75 1156; Sub 932 932 1156;
  Mul 1186 77 1186; Add 932 932 1186; Mul 932 44 932; Mul 1186 208 926; Sub 229 229 1186; Mul 1186 218 923;
  Add 229 229 1186; Mul 229 521 229; Add 932 932 229; Mul 229 23 932; Add 780 780 229; Mul 229 62 652;
  Mul 1186 61 922; Add 229 229 1186; Mul 1186 525 926; Add 1186 1186 873; Mul 924 218 924; Sub 1186 1186 924;
  Mul 1186 521 1186; Add 229 229 1186; Mul 1186 22 229; Add 780 780 1186; Mul 1186 15 780; Sub 1297 1297 1186;
  Mul 1186 247 793; Sub 668 668 1186; Mul 1186 252 944; Add 668 668 1186; Mul 668 805 668; Add 1297 1297 668;
  Mul 668 9 1297; Mul 793 259 793; Add 793 793 1185; Mul 252 252 838; Add 793 793 252; Mul 793 805 793;
  Mul 252 16 780; Add 793 793 252; Mul 252 15 916; Add 793 793 252; Mul 252 8 793; Sub 668 668 252;
  Mul 252 264 937; Mul 252 763 252; Sub 668 668 252; Mul 668 517 668; Add 190 190 668; Mul 190 4 190;
  Mul 668 278 870; Mul 252 264 1049; Add 668 668 252; Mul 668 763 668; Mul 252 9 793].
Definition casadi_f0_61 : list instruction := [
  Add 668 668 252; Mul 252 8 1297; Add 668 668 252; Mul 517 517 668; Mul 668 763 143; Mul 264 264 668;
  Mul 668 9 1093; Mul 252 8 616; Add 668 668 252; Mul 1241 3 1241; Mul 252 8 650; Mul 1185 9 656;
  Sub 252 252 1185; Mul 252 37 252; Sub 1241 1241 252; Add 668 668 1241; Add 264 264 668; Mul 668 264 766;
  Sub 517 517 668; Mul 517 5 517; Sub 190 190 517; Mul 284 284 1281; Mul 517 893 1039; Add 284 284 517;
  Mul 943 943 1038; Add 284 284 943; Mul 943 891 1293; Add 284 284 943; Mul 913 913 1041; Add 284 284 913;
  Mul 1033 956 1033; Add 1033 1033 1033; Mul 913 945 1101; Sub 1033 1033 913; Mul 1101 946 1101;
  Add 1033 1033 1101; Mul 946 946 1107; Add 1033 1033 946; Mul 945 945 1107; Sub 1033 1033 945;
  Mul 956 956 1030; Sub 1033 1033 956; Sub 1033 1033 956; Mul 956 948 1017; Sub 1033 1033 956; Mul 956 942 1022;
  Sub 1033 1033 956; Mul 956 904 1270; Mul 1030 904 1151; Add 956 956 1030; Mul 893 893 1235; Sub 956 956 893;
  Mul 891 891 1292; Sub 956 956 891; Mul 763 763 956; Add 1033 1033 763; Mul 948 948 1014; Sub 1033 1033 948;
  Mul 942 942 1025; Sub 1033 1033 942; Mul 1033 45 1033; Add 284 284 1033; Mul 905 731 905; Add 284 284 905;
  Mul 900 735 900; Add 284 284 900; Mul 1043 0 1043; Add 284 284 1043; Mul 519 1 519; Add 284 284 519;
  Mul 519 47 284; Mul 86 0 86; Mul 182 1 182; Add 86 86 182; Mul 182 42 523; Mul 1043 99 928; Sub 182 182 1043;
  Mul 1043 34 1207; Mul 900 100 1079; Sub 1043 1043 900; Mul 900 130 1099; Add 1043 1043 900; Mul 900 60 1223;
  Sub 1043 1043 900; Mul 900 979 1096; Mul 905 698 1083; Sub 900 900 905; Mul 905 100 1082; Add 900 900 905;
  Mul 905 34 183; Sub 900 900 905; Mul 905 606 1086; Sub 900 900 905; Mul 905 1304 1087; Add 900 900 905;
  Mul 905 132 1112; Sub 900 900 905; Mul 905 72 1228; Sub 900 900 905; Mul 905 181 1173; Sub 900 900 905;
  Mul 905 139 1135; Sub 900 900 905; Mul 905 602 1092; Add 900 900 905; Mul 905 600 1098; Sub 900 900 905;
  Mul 905 35 1078; Mul 1033 100 1128; Add 905 905 1033; Mul 1033 100 1091; Sub 905 905 1033; Mul 1033 35 1086;
  Add 905 905 1033; Mul 1033 520 1056; Mul 942 99 1068; Sub 1033 1033 942; Mul 861 737 861; Mul 883 0 883;
  Add 861 861 883; Sub 861 861 1271; Mul 738 669 738; Mul 876 0 876; Add 738 738 876; Sub 738 861 738;
  Add 1033 1033 738; Add 905 905 1033; Mul 876 99 1130; Mul 1271 520 1062; Add 876 876 1271; Mul 859 0 859;
  Mul 1271 737 884; Add 859 859 1271; Sub 859 859 1121; Mul 736 0 736; Mul 1121 669 877; Add 736 736 1121;
  Sub 736 859 736; Add 876 876 736; Add 905 905 876; Mul 1121 103 1081; Mul 1271 34 1158; Add 1121 1121 1271;
  Mul 1271 34 1097; Sub 1121 1121 1271; Mul 1271 103 1087; Add 1121 1121 1271; Mul 1271 539 1057;
  Mul 883 42 1075].
Definition casadi_f0_62 : list instruction := [
  Sub 1271 1271 883; Mul 874 1 874; Mul 739 671 739; Sub 874 874 739; Mul 854 734 854; Mul 882 1 882;
  Add 854 854 882; Sub 1285 1285 854; Add 874 874 1285; Add 1271 1271 874; Add 1121 1121 1271; Mul 854 42 1160;
  Mul 882 539 1063; Add 854 854 882; Mul 733 1 733; Mul 882 671 722; Sub 733 733 882; Mul 882 734 885;
  Mul 858 1 858; Sub 882 882 858; Add 882 882 1287; Add 733 733 882; Add 854 854 733; Add 1121 1121 854;
  Mul 1287 24 1116; Mul 858 137 1085; Add 1287 1287 858; Mul 858 24 1088; Sub 1287 1287 858; Mul 869 729 869;
  Mul 767 679 767; Sub 767 869 767; Mul 858 551 1061; Mul 739 20 1064; Add 858 858 739; Sub 858 767 858;
  Add 1287 1287 858; Mul 739 137 1090; Add 1287 1287 739; Mul 739 20 1118; Mul 883 551 1067; Add 739 739 883;
  Mul 868 729 868; Mul 966 679 966; Sub 966 868 966; Add 739 739 966; Add 1287 1287 739; Add 1121 1121 1287;
  Add 905 905 1121; Mul 1121 82 905; Add 900 900 1121; Mul 82 82 1287; Sub 900 900 82; Sub 900 900 1121;
  Add 900 900 82; Mul 72 72 1233; Add 900 900 72; Mul 132 132 1123; Add 900 900 132; Mul 188 188 1174;
  Add 900 900 188; Mul 188 60 1232; Add 900 900 188; Mul 181 181 1171; Sub 900 900 181; Add 181 83 83;
  Mul 1181 181 1181; Add 900 900 1181; Mul 141 141 1138; Sub 900 900 141; Mul 141 130 1111; Sub 900 900 141;
  Mul 139 139 1137; Sub 900 900 139; Mul 181 181 1179; Add 900 900 181; Mul 181 981 1074; Mul 1179 701 1059;
  Sub 181 181 1179; Mul 1179 99 1058; Add 181 181 1179; Mul 1179 42 624; Sub 181 181 1179; Mul 1179 631 1062;
  Sub 181 181 1179; Mul 1179 1306 1063; Add 181 181 1179; Mul 1069 619 1069; Add 181 181 1069;
  Mul 1076 614 1076; Sub 181 181 1076; Mul 746 1001 746; Mul 742 816 742; Sub 746 746 742; Mul 755 0 755;
  Add 746 746 755; Mul 759 1 759; Add 746 746 759; Mul 877 675 877; Sub 746 746 877; Mul 722 627 722;
  Add 746 746 722; Mul 978 664 978; Sub 746 746 978; Mul 534 660 534; Add 746 746 534; Mul 864 907 864;
  Mul 863 1052 863; Sub 864 864 863; Mul 866 0 866; Sub 864 864 866; Mul 802 1 802; Sub 864 864 802;
  Mul 884 807 884; Sub 864 864 884; Mul 885 1180 885; Add 864 864 885; Mul 611 747 611; Add 864 864 611;
  Mul 815 744 815; Sub 864 864 815; Mul 1050 741 1050; Mul 951 938 951; Mul 949 133 949; Add 951 951 949;
  Mul 898 745 898; Add 951 951 898; Sub 1050 1050 951; Mul 951 273 1050; Add 864 864 951; Add 918 918 918;
  Mul 1187 918 1187; Mul 918 918 1125; Sub 1187 1187 918; Mul 1048 1048 1251; Sub 1187 1187 1048;
  Mul 917 917 1189; Sub 1187 1187 917; Sub 864 864 1187; Mul 917 266 864; Add 746 746 917; Add 789 789 789;
  Mul 1154 789 1154; Mul 789 789 1192; Add 1154 1154 789; Mul 1006 1006 1250; Sub 1154 1154 1006;
  Mul 796 796 1194; Sub 1154 1154 796].
Definition casadi_f0_63 : list instruction := [
  Sub 746 746 1154; Mul 796 249 746; Add 181 181 796; Add 643 643 643; Mul 1313 643 1313; Mul 643 643 1197;
  Add 1313 1313 643; Mul 993 993 1249; Sub 1313 1313 993; Mul 641 641 1199; Sub 1313 1313 641; Sub 181 181 1313;
  Mul 641 227 181; Add 900 900 641; Add 612 612 612; Mul 1216 612 1216; Mul 612 612 1202; Add 1216 1216 612;
  Mul 991 991 1248; Sub 1216 1216 991; Mul 618 618 1205; Sub 1216 1216 618; Sub 900 900 1216; Mul 1146 128 1146;
  Add 900 900 1146; Mul 128 128 1144; Sub 900 900 128; Add 900 900 1146; Sub 900 900 128; Mul 159 159 617;
  Sub 900 900 159; Mul 186 186 1252; Sub 900 900 186; Add 1043 1043 900; Add 182 182 1043; Mul 186 544 1208;
  Add 182 182 186; Mul 186 522 1253; Sub 182 182 186; Add 1033 1033 876; Add 1271 1271 854; Add 858 858 739;
  Add 1271 1271 858; Add 1033 1033 1271; Mul 1271 530 1033; Mul 739 546 1113; Mul 854 524 1229; Add 739 739 854;
  Mul 854 589 1172; Add 739 739 854; Mul 854 553 1122; Add 739 739 854; Sub 739 1271 739; Mul 530 530 858;
  Sub 739 739 530; Sub 739 739 1271; Add 739 739 530; Mul 524 524 1237; Add 739 739 524; Mul 546 546 1127;
  Add 739 739 546; Mul 592 592 1214; Add 739 739 592; Mul 592 522 1254; Add 739 739 592; Mul 589 589 1170;
  Sub 739 739 589; Add 589 531 531; Mul 1221 589 1221; Add 739 739 1221; Mul 555 555 1211; Sub 739 739 555;
  Mul 555 544 1210; Sub 739 739 555; Mul 553 553 1136; Sub 739 739 553; Mul 589 589 1219; Add 739 739 589;
  Mul 622 622 181; Add 739 739 622; Add 739 739 1216; Mul 1212 543 1212; Add 739 739 1212; Mul 543 543 1142;
  Sub 739 739 543; Add 739 739 1212; Sub 739 739 543; Mul 570 570 1203; Sub 739 739 570; Mul 594 594 1239;
  Sub 739 739 594; Add 182 182 739; Add 86 86 182; Mul 594 644 1264; Add 86 86 594; Mul 594 646 1159;
  Sub 86 86 594; Add 738 738 736; Add 874 874 733; Add 767 767 966; Add 874 874 767; Add 738 738 874;
  Mul 874 684 738; Mul 966 681 1226; Mul 733 690 1230; Add 966 966 733; Mul 733 711 1016; Add 966 966 733;
  Mul 733 678 1023; Add 966 966 733; Sub 966 874 966; Mul 684 684 767; Sub 966 966 684; Sub 966 966 874;
  Add 966 966 684; Mul 690 690 1234; Add 966 966 690; Mul 681 681 1259; Add 966 966 681; Mul 714 714 1019;
  Add 966 966 714; Mul 646 646 149; Add 966 966 646; Mul 711 711 1013; Sub 966 966 711; Add 711 642 642;
  Mul 1261 711 1261; Add 966 966 1261; Mul 685 685 1027; Sub 966 966 685; Mul 644 644 1260; Sub 966 966 644;
  Mul 678 678 1026; Sub 966 966 678; Mul 711 711 1124; Add 966 966 711; Mul 661 661 746; Add 966 966 661;
  Add 966 966 1313; Mul 1240 692 1240; Add 966 966 1240; Mul 692 692 1143; Add 966 966 692; Add 966 966 1240;
  Add 966 966 692; Mul 712 712 1198; Sub 966 966 712; Mul 704 704 1262; Sub 966 966 704].
Definition casadi_f0_64 : list instruction := [
  Add 86 86 966; Mul 704 12 86; Mul 1262 35 545; Mul 712 103 970; Mul 1198 137 84; Add 712 712 1198;
  Add 1262 1262 712; Mul 712 100 609; Mul 1198 34 80; Sub 1302 1302 168; Sub 147 147 1303; Sub 144 144 145;
  Add 147 147 144; Sub 167 167 136; Add 147 147 167; Sub 1302 1302 147; Mul 147 24 1302; Add 1198 1198 147;
  Add 712 712 1198; Sub 1262 1262 712; Mul 1047 1262 1047; Mul 600 164 600; Mul 602 185 602; Add 600 600 602;
  Mul 602 174 603; Add 600 600 602; Mul 606 104 606; Mul 1304 74 1304; Sub 606 606 1304; Add 600 600 606;
  Mul 606 529 35; Mul 1304 85 103; Mul 602 84 137; Add 1304 1304 602; Add 606 606 1304; Mul 1304 189 100;
  Mul 602 162 34; Mul 712 1302 24; Add 602 602 712; Add 1304 1304 602; Sub 606 606 1304; Add 600 600 606;
  Mul 1054 600 1054; Add 1047 1047 1054; Mul 1054 620 614; Mul 606 613 619; Add 1054 1054 606; Mul 606 999 621;
  Add 1054 1054 606; Mul 631 626 631; Mul 1306 623 1306; Sub 631 631 1306; Add 1054 1054 631; Mul 631 562 520;
  Mul 1306 976 539; Mul 606 532 551; Add 1306 1306 606; Add 631 631 1306; Mul 1306 596 99; Mul 606 548 42;
  Sub 1308 1308 578; Sub 561 561 1309; Sub 558 558 559; Add 561 561 558; Sub 577 577 550; Add 561 561 577;
  Sub 1308 1308 561; Add 1308 1308 1302; Mul 561 1308 20; Add 606 606 561; Add 1306 1306 606; Sub 631 631 1306;
  Add 1054 1054 631; Mul 1055 1054 1055; Add 1047 1047 1055; Mul 1118 532 1118; Add 1047 1047 1118;
  Mul 596 596 1056; Sub 1047 1047 596; Mul 548 548 1057; Sub 1047 1047 548; Mul 976 976 1160; Add 1047 1047 976;
  Mul 562 562 1130; Add 1047 1047 562; Mul 620 620 1059; Sub 1047 1047 620; Mul 613 613 1074; Sub 1047 1047 613;
  Mul 999 999 1060; Sub 1047 1047 999; Mul 626 626 1058; Sub 1047 1047 626; Mul 623 623 624; Add 1047 1047 623;
  Mul 1061 1308 1061; Add 1047 1047 1061; Mul 1064 532 1064; Sub 1047 1047 1064; Mul 1075 533 1075;
  Sub 1047 1047 1075; Mul 1068 1310 1068; Sub 1047 1047 1068; Mul 1062 634 1062; Sub 1047 1047 1062;
  Mul 1063 572 1063; Sub 1047 1047 1063; Mul 1067 1308 1067; Sub 1047 1047 1067; Mul 928 98 928;
  Add 1047 1047 928; Mul 552 552 1070; Sub 1047 1047 552; Mul 523 39 523; Sub 1047 1047 523; Mul 588 588 1077;
  Add 1047 1047 588; Mul 544 544 1257; Add 1047 1047 544; Mul 522 522 556; Sub 1047 1047 522; Mul 522 29 1043;
  Add 1047 1047 522; Mul 522 174 1110; Mul 544 103 1092; Sub 522 522 544; Mul 544 35 1098; Add 522 522 544;
  Mul 544 100 1243; Sub 522 522 544; Mul 544 34 173; Add 522 522 544; Mul 1232 74 1232; Sub 522 522 1232;
  Mul 1174 185 1174; Add 522 522 1174; Mul 1111 104 1111; Add 522 522 1111; Mul 1138 164 1138; Add 522 522 1138;
  Mul 1138 178 1104; Mul 1141 161 1141; Add 1141 1141 1141; Sub 1138 1138 1141; Mul 1104 177 1104;
  Sub 1138 1138 1104; Mul 177 177 1109; Sub 1138 1138 177; Mul 178 178 1109].
Definition casadi_f0_65 : list instruction := [
  Add 1138 1138 178; Mul 161 161 1140; Add 1138 1138 161; Add 1138 1138 161; Mul 1173 187 1173;
  Sub 1138 1138 1173; Mul 1135 166 1135; Add 1138 1138 1135; Mul 1112 104 1112; Mul 1228 74 1228;
  Add 1112 1112 1228; Mul 905 83 905; Add 1112 1112 905; Mul 83 83 1287; Sub 1112 1112 83; Sub 1112 1112 905;
  Add 1112 1112 83; Mul 1233 74 1233; Sub 1112 1112 1233; Mul 1123 104 1123; Sub 1112 1112 1123; Mul 44 44 1112;
  Add 1138 1138 44; Mul 187 187 1171; Sub 1138 1138 187; Mul 166 166 1137; Add 1138 1138 166; Mul 1138 45 1138;
  Add 522 522 1138; Mul 1138 101 1099; Sub 522 522 1138; Mul 1138 41 1223; Add 522 522 1138; Mul 71 71 522;
  Mul 129 129 1117; Add 71 71 129; Mul 129 77 900; Add 71 71 129; Mul 78 78 1110; Mul 1110 24 1084;
  Sub 78 78 1110; Mul 603 603 1090; Add 78 78 603; Add 78 78 1177; Add 78 78 1206; Sub 78 78 1176;
  Mul 1176 79 78; Mul 1177 105 1246; Add 1176 1176 1177; Mul 1177 63 1247; Add 1176 1176 1177;
  Mul 1177 158 1176; Add 71 71 1177; Mul 1177 24 78; Mul 1246 100 1246; Add 1177 1177 1246; Mul 1247 34 1247;
  Add 1177 1177 1247; Mul 1247 154 1177; Add 71 71 1247; Mul 1247 62 71; Add 1047 1047 1247; Mul 1247 157 1244;
  Mul 165 165 78; Add 1247 1247 165; Mul 65 65 522; Add 1247 1247 65; Mul 124 124 1117; Add 1247 1247 124;
  Mul 124 75 900; Add 1247 1247 124; Mul 124 156 1176; Add 1247 1247 124; Mul 124 152 1177; Add 1247 1247 124;
  Mul 124 61 1247; Sub 1047 1047 124; Mul 583 583 1209; Mul 1070 539 1070; Sub 583 583 1070; Mul 1077 520 1077;
  Add 583 583 1077; Mul 1257 99 1257; Sub 583 583 1257; Mul 556 42 556; Add 583 583 556; Mul 1254 526 1254;
  Sub 583 583 1254; Mul 593 593 1214; Add 583 583 593; Mul 1210 540 1210; Add 583 583 1210; Mul 574 574 1211;
  Add 583 583 574; Mul 574 586 1103; Mul 1129 571 1129; Add 1129 1129 1129; Sub 574 574 1129; Mul 1103 585 1103;
  Sub 574 574 1103; Mul 585 585 1108; Sub 574 574 585; Mul 586 586 1108; Add 574 574 586; Mul 571 571 1139;
  Add 574 574 571; Add 574 574 571; Mul 1172 595 1172; Sub 574 574 1172; Mul 1122 576 1122; Add 574 574 1122;
  Mul 1113 540 1113; Mul 1229 526 1229; Add 1113 1113 1229; Mul 1033 531 1033; Add 1113 1113 1033;
  Mul 531 531 858; Sub 1113 1113 531; Sub 1113 1113 1033; Add 1113 1113 531; Mul 526 526 1237;
  Sub 1113 1113 526; Mul 540 540 1127; Sub 1113 1113 540; Mul 521 521 1113; Add 574 574 521; Mul 595 595 1170;
  Sub 574 574 595; Mul 576 576 1136; Add 574 574 576; Mul 574 45 574; Add 583 583 574; Mul 98 98 1208;
  Sub 583 583 98; Mul 39 39 1253; Add 583 583 39; Mul 39 68 583; Add 1047 1047 39; Mul 126 126 1119;
  Add 1047 1047 126; Mul 218 218 739; Add 1047 1047 218; Mul 218 19 182; Add 1047 1047 218; Mul 528 528 1209;
  Add 528 528 1217; Add 528 528 1206; Sub 528 528 1218; Mul 1218 24 528].
Definition casadi_f0_66 : list instruction := [
  Mul 1206 100 1225; Add 1218 1218 1206; Mul 1206 34 1131; Add 1218 1218 1206; Mul 567 567 1218;
  Add 1047 1047 567; Mul 653 653 135; Mul 980 671 980; Add 653 653 980; Mul 700 669 700; Add 653 653 700;
  Mul 974 0 974; Add 653 653 974; Mul 516 1 516; Add 653 653 516; Mul 149 655 149; Sub 653 653 149;
  Mul 703 703 1019; Add 653 653 703; Mul 1260 639 1260; Add 653 653 1260; Mul 635 635 1027; Add 653 653 635;
  Mul 635 708 1100; Mul 1034 723 1034; Add 1034 1034 1034; Sub 635 635 1034; Mul 1100 709 1100;
  Sub 635 635 1100; Mul 709 709 1105; Sub 635 635 709; Mul 708 708 1105; Add 635 635 708; Mul 723 723 1028;
  Add 635 635 723; Add 635 635 723; Mul 1016 705 1016; Sub 635 635 1016; Mul 1023 713 1023; Add 635 635 1023;
  Mul 1226 639 1226; Mul 1230 655 1230; Add 1226 1226 1230; Mul 738 642 738; Add 1226 1226 738; Mul 642 642 767;
  Sub 1226 1226 642; Sub 1226 1226 738; Add 1226 1226 642; Mul 655 655 1234; Sub 1226 1226 655;
  Mul 639 639 1259; Sub 1226 1226 639; Mul 673 673 1226; Add 635 635 673; Mul 705 705 1013; Sub 635 635 705;
  Mul 713 713 1026; Add 635 635 713; Mul 635 45 635; Add 653 653 635; Mul 95 95 1264; Sub 653 653 95;
  Mul 38 38 1159; Add 653 653 38; Mul 66 66 653; Add 1047 1047 66; Mul 125 125 1265; Add 1047 1047 125;
  Mul 125 243 966; Add 1047 1047 125; Mul 125 1 1167; Mul 66 0 1183; Sub 125 125 66; Mul 637 637 125;
  Add 1047 1047 637; Mul 659 659 135; Add 659 659 1114; Add 659 659 1200; Sub 659 659 1132; Mul 1132 17 659;
  Mul 1183 97 1183; Add 1132 1132 1183; Mul 1167 32 1167; Add 1132 1132 1167; Mul 597 597 1132;
  Add 1047 1047 597; Mul 597 16 1047; Add 704 704 597; Mul 590 590 659; Mul 233 233 1020; Sub 590 590 233;
  Mul 182 14 182; Add 590 590 182; Mul 239 239 1175; Mul 575 575 528; Add 239 239 575; Mul 575 26 1043;
  Add 239 239 575; Mul 575 61 71; Add 239 239 575; Mul 575 62 1247; Add 239 239 575; Mul 575 64 583;
  Add 239 239 575; Mul 122 122 1119; Add 239 239 122; Mul 208 208 739; Add 239 239 208; Mul 208 27 528;
  Mul 1225 102 1225; Add 208 208 1225; Mul 1131 43 1131; Add 208 208 1131; Mul 569 569 208; Add 239 239 569;
  Mul 569 205 1218; Add 239 239 569; Mul 569 22 239; Add 590 590 569; Mul 1080 600 1080; Mul 1116 84 1116;
  Add 1080 1080 1116; Mul 189 189 1078; Sub 1080 1080 189; Mul 162 162 1081; Sub 1080 1080 162; Mul 85 85 1158;
  Add 1080 1080 85; Mul 529 529 1128; Add 1080 1080 529; Mul 164 164 1083; Sub 1080 1080 164; Mul 185 185 1096;
  Sub 1080 1080 185; Mul 174 174 1084; Sub 1080 1080 174; Mul 104 104 1082; Sub 1080 1080 104; Mul 74 74 183;
  Add 1080 1080 74; Mul 1085 1302 1085; Sub 1080 1080 1085; Mul 84 84 1088; Sub 1080 1080 84; Mul 970 970 1097;
  Sub 1080 1080 970; Mul 545 545 1091; Sub 1080 1080 545].
Definition casadi_f0_67 : list instruction := [
  Mul 609 609 1086; Sub 1080 1080 609; Mul 80 80 1087; Sub 1080 1080 80; Mul 1302 1302 1090; Sub 1080 1080 1302;
  Mul 101 101 1079; Add 1080 1080 101; Mul 138 138 1092; Sub 1080 1080 138; Mul 41 41 1207; Sub 1080 1080 41;
  Mul 180 180 1098; Add 1080 1080 180; Mul 130 130 1243; Add 1080 1080 130; Mul 60 60 173; Sub 1080 1080 60;
  Mul 160 160 1244; Sub 1080 1080 160; Mul 163 163 78; Add 1080 1080 163; Mul 573 573 528; Add 1080 1080 573;
  Mul 59 59 522; Add 1080 1080 59; Mul 120 120 1117; Add 1080 1080 120; Mul 73 73 900; Add 1080 1080 73;
  Mul 1043 21 1043; Add 1080 1080 1043; Mul 1176 152 1176; Add 1080 1080 1176; Mul 150 150 1177;
  Add 1080 1080 150; Mul 52 52 583; Add 1080 1080 52; Mul 116 116 1119; Add 1080 1080 116; Mul 525 525 739;
  Add 1080 1080 525; Mul 205 205 208; Add 1080 1080 205; Mul 564 564 1218; Add 1080 1080 564; Mul 564 23 1080;
  Add 590 590 564; Mul 564 50 653; Add 590 590 564; Mul 112 112 1265; Add 590 590 112; Mul 966 214 966;
  Add 590 590 966; Mul 204 204 125; Add 590 590 204; Mul 632 632 1132; Add 590 590 632; Mul 632 15 590;
  Sub 704 704 632; Mul 783 783 1268; Mul 1000 734 1000; Sub 783 783 1000; Mul 832 737 832; Add 783 783 832;
  Mul 787 0 787; Add 783 783 787; Mul 817 1 817; Add 783 783 817; Mul 817 785 1266; Sub 783 783 817;
  Mul 847 847 1031; Add 783 783 847; Mul 847 794 1273; Add 783 783 847; Mul 797 797 1037; Add 783 783 797;
  Mul 797 852 1102; Mul 1032 840 1032; Add 1032 1032 1032; Sub 797 797 1032; Mul 1102 853 1102;
  Sub 797 797 1102; Mul 853 853 1106; Sub 797 797 853; Mul 852 852 1106; Add 797 797 852; Mul 840 840 1029;
  Add 797 797 840; Add 797 797 840; Mul 840 849 1018; Sub 797 797 840; Mul 840 842 1021; Add 797 797 840;
  Mul 840 794 1227; Mul 1029 785 1231; Add 840 840 1029; Add 861 861 859; Add 1285 1285 882; Add 869 869 868;
  Add 1285 1285 869; Add 861 861 1285; Mul 1285 788 861; Add 840 840 1285; Mul 868 788 869; Sub 840 840 868;
  Sub 840 840 1285; Add 840 840 868; Mul 785 785 1236; Sub 840 840 785; Mul 794 794 1272; Sub 840 840 794;
  Mul 805 805 840; Add 797 797 805; Mul 849 849 1015; Sub 797 797 849; Mul 842 842 1024; Add 797 797 842;
  Mul 45 45 797; Add 783 783 45; Mul 92 92 1275; Sub 783 783 92; Mul 36 36 1267; Add 783 783 36; Mul 36 51 783;
  Add 704 704 36; Mul 113 113 1276; Add 704 704 113; Mul 861 812 861; Mul 1227 823 1227; Mul 1231 809 1231;
  Add 1227 1227 1231; Mul 1018 855 1018; Add 1227 1227 1018; Mul 1021 828 1021; Add 1227 1227 1021;
  Sub 1227 861 1227; Mul 812 812 869; Sub 1227 1227 812; Sub 1227 1227 861; Add 1227 1227 812; Mul 809 809 1236;
  Add 1227 1227 809; Mul 823 823 1272; Add 1227 1227 823; Mul 856 856 1031; Add 1227 1227 856;
  Mul 1266 750 1266; Add 1227 1227 1266].
Definition casadi_f0_68 : list instruction := [
  Mul 855 855 1015; Sub 1227 1227 855; Add 788 788 788; Mul 1274 788 1274; Add 1227 1227 1274; Mul 830 830 1037;
  Sub 1227 1227 830; Mul 1273 748 1273; Sub 1227 1227 1273; Mul 828 828 1024; Sub 1227 1227 828;
  Mul 788 788 1126; Add 1227 1227 788; Mul 800 800 864; Add 1227 1227 800; Add 1227 1227 1154;
  Mul 1242 821 1242; Add 1227 1227 1242; Mul 821 821 1143; Add 1227 1227 821; Add 1227 1227 1242;
  Add 1227 1227 821; Mul 839 839 1193; Sub 1227 1227 839; Mul 848 848 1278; Sub 1227 1227 848; Mul 848 259 1227;
  Add 704 704 848; Mul 848 1 1279; Mul 1278 0 1277; Sub 848 848 1278; Mul 782 782 848; Add 704 704 782;
  Mul 743 743 1268; Add 743 743 1115; Add 743 743 1195; Sub 743 743 1134; Mul 1134 10 743; Mul 1277 93 1277;
  Add 1134 1134 1277; Mul 1279 30 1279; Add 1134 1134 1279; Mul 778 778 1134; Add 704 704 778; Mul 778 8 704;
  Add 519 519 778; Mul 781 781 743; Mul 255 255 1036; Sub 781 781 255; Mul 255 7 86; Add 781 781 255;
  Mul 255 15 1047; Add 781 781 255; Mul 255 16 590; Add 781 781 255; Mul 255 48 783; Add 781 781 255;
  Mul 110 110 1276; Sub 781 781 110; Mul 110 247 1227; Add 781 781 110; Mul 203 203 848; Add 781 781 203;
  Mul 775 775 1134; Add 781 781 775; Mul 775 9 781; Add 519 519 775; Mul 740 740 1281; Add 740 740 1133;
  Sub 740 740 1190; Sub 1155 1155 740; Mul 740 5 1155; Mul 1190 28 1282; Add 740 740 1190; Mul 1190 91 1284;
  Add 740 740 1190; Mul 910 910 740; Add 519 519 910; Mul 610 0 610; Add 519 519 610; Mul 921 1 921;
  Add 519 519 921; Mul 921 4 284; Mul 610 70 1099; Mul 910 107 1223; Add 610 610 910; Mul 910 81 1117;
  Add 610 610 910; Mul 910 61 610; Mul 1190 63 1099; Mul 1133 105 1223; Add 1190 1190 1133; Mul 1133 79 1117;
  Add 1190 1190 1133; Mul 1133 62 1190; Add 910 910 1133; Mul 1133 43 1208; Add 1133 910 1133;
  Mul 1281 102 1253; Add 1133 1133 1281; Mul 1281 27 1119; Add 1133 1133 1281; Mul 1281 23 1133;
  Mul 1099 34 1099; Mul 1223 100 1223; Add 1099 1099 1223; Mul 1117 24 1117; Add 1099 1099 1117;
  Mul 1117 34 1208; Add 1117 1099 1117; Mul 1223 100 1253; Add 1117 1117 1223; Mul 1223 24 1119;
  Add 1117 1117 1223; Mul 1223 22 1117; Sub 1281 1281 1223; Mul 1223 1 1264; Add 1223 1281 1223; Mul 775 0 1159;
  Sub 1223 1223 775; Mul 775 1 1275; Add 775 1223 775; Mul 1134 0 1267; Sub 775 775 1134; Mul 775 3 775;
  Add 921 921 775; Mul 775 62 610; Mul 1134 61 1190; Sub 775 775 1134; Mul 1208 42 1208; Add 1208 775 1208;
  Mul 1253 99 1253; Add 1208 1208 1253; Mul 1119 20 1119; Add 1208 1208 1119; Mul 1119 42 1264;
  Add 1119 1208 1119; Mul 1253 99 1159; Add 1119 1119 1253; Mul 1253 20 1265; Add 1119 1119 1253;
  Mul 1253 16 1119; Mul 1134 22 1133; Mul 203 23 1117; Add 1134 1134 203; Mul 1264 32 1264; Add 1264 1134 1264;
  Mul 1159 97 1159; Add 1264 1264 1159].
Definition casadi_f0_69 : list instruction := [
  Mul 1265 17 1265; Add 1264 1264 1265; Mul 1265 15 1264; Sub 1253 1253 1265; Mul 1265 33 1275;
  Add 1265 1253 1265; Mul 1159 96 1267; Add 1265 1265 1159; Mul 1159 13 1276; Add 1265 1265 1159;
  Mul 1159 9 1265; Mul 203 15 1119; Mul 848 16 1264; Add 203 203 848; Mul 848 30 1275; Add 848 203 848;
  Mul 110 93 1267; Add 848 848 110; Mul 1276 10 1276; Add 848 848 1276; Mul 1276 8 848; Sub 1159 1159 1276;
  Mul 1159 37 1159; Add 921 921 1159; Mul 1159 7 1223; Mul 1276 14 1281; Mul 110 40 1134; Sub 1276 1276 110;
  Mul 110 21 910; Mul 255 26 1099; Sub 110 110 255; Mul 81 81 522; Mul 70 70 640; Add 81 81 70;
  Mul 107 107 1145; Add 81 81 107; Mul 107 62 81; Add 110 110 107; Mul 79 79 522; Mul 63 63 640; Add 79 79 63;
  Mul 105 105 1145; Add 79 79 105; Mul 105 61 79; Sub 110 110 105; Mul 105 20 583; Add 110 110 105;
  Mul 105 42 89; Add 110 110 105; Mul 105 99 1255; Add 110 110 105; Add 1276 1276 110; Mul 105 20 653;
  Add 1276 1276 105; Mul 105 42 1182; Add 1276 1276 105; Mul 105 99 1263; Add 1276 1276 105; Mul 105 16 1276;
  Add 1159 1159 105; Mul 105 40 1208; Mul 1281 19 1281; Sub 105 105 1281; Mul 1099 29 1099; Mul 1281 21 775;
  Sub 1099 1099 1281; Mul 1281 61 81; Add 1099 1099 1281; Mul 1281 62 79; Add 1099 1099 1281; Mul 1281 27 583;
  Add 1099 1099 1281; Mul 1281 43 89; Add 1099 1099 1281; Mul 1281 102 1255; Add 1099 1099 1281;
  Mul 1281 22 1099; Add 105 105 1281; Mul 775 26 775; Mul 910 29 910; Sub 775 775 910; Mul 522 24 522;
  Mul 640 34 640; Add 522 522 640; Mul 1145 100 1145; Add 522 522 1145; Add 775 775 522; Mul 583 24 583;
  Add 775 775 583; Mul 89 34 89; Add 775 775 89; Mul 1255 100 1255; Add 775 775 1255; Mul 1255 23 775;
  Add 105 105 1255; Mul 653 17 653; Add 105 105 653; Mul 653 32 1182; Add 105 105 653; Mul 653 97 1263;
  Add 105 105 653; Mul 653 15 105; Sub 1159 1159 653; Mul 653 13 783; Add 1159 1159 653; Mul 653 33 566;
  Add 1159 1159 653; Mul 653 96 1280; Add 1159 1159 653; Mul 653 8 1159; Add 921 921 653; Mul 653 15 1276;
  Mul 1223 12 1223; Sub 653 653 1223; Mul 1223 16 105; Add 653 653 1223; Mul 783 10 783; Add 653 653 783;
  Mul 783 30 566; Add 653 653 783; Mul 783 93 1280; Add 653 653 783; Mul 783 9 653; Add 921 921 783;
  Mul 783 31 1147; Add 921 921 783; Mul 783 94 1152; Add 921 921 783; Mul 783 46 921; Add 519 519 783;
  Mul 519 5 519; Sub 190 190 519; Mul 519 49 284; Mul 911 911 1155; Add 519 519 911; Mul 657 0 657;
  Mul 687 1 687; Add 657 657 687; Add 657 657 86; Mul 748 748 1275; Add 657 657 748; Mul 750 750 1267;
  Sub 657 657 750; Add 657 657 1227; Mul 657 3 657; Sub 519 519 657; Mul 657 9 704; Add 519 519 657;
  Mul 657 8 781].
Definition casadi_f0_70 : list instruction := [
  Sub 519 519 657; Mul 1270 903 1270; Mul 903 903 1151; Add 1270 1270 903; Mul 1017 936 1017;
  Add 1270 1270 1017; Mul 1022 940 1022; Add 1270 1270 1022; Mul 890 890 1235; Add 1270 1270 890;
  Mul 895 895 1292; Add 1270 1270 895; Mul 952 952 1038; Sub 1270 1270 952; Mul 754 754 1039; Sub 1270 1270 754;
  Add 904 904 904; Mul 1296 904 1296; Add 1270 1270 1296; Mul 936 936 1014; Add 1270 1270 936; Mul 925 925 1041;
  Sub 1270 1270 925; Mul 752 752 1293; Sub 1270 1270 752; Mul 940 940 1025; Add 1270 1270 940; Mul 904 904 1294;
  Sub 1270 1270 904; Mul 930 930 1050; Add 1270 1270 930; Add 1270 1270 1187; Mul 947 947 1283;
  Sub 1270 1270 947; Mul 941 941 1286; Sub 1270 1270 941; Mul 1270 278 1270; Sub 519 519 1270; Mul 1284 0 1284;
  Mul 1282 1 1282; Sub 1284 1284 1282; Mul 276 276 1284; Add 519 519 276; Mul 912 912 740; Sub 519 519 912;
  Mul 1150 0 1150; Add 519 519 1150; Mul 284 5 284; Mul 1150 9 848; Mul 912 8 1265; Add 1150 1150 912;
  Mul 912 37 1150; Sub 284 284 912; Mul 912 9 1159; Add 284 284 912; Mul 912 8 653; Sub 284 284 912;
  Mul 912 28 1147; Sub 284 284 912; Mul 912 91 1152; Sub 284 284 912; Mul 912 46 284; Add 519 519 912;
  Mul 1291 1 1291; Add 519 519 1291; Mul 519 4 519; Add 190 190 519; Arg 519 2 0; Add 934 934 954;
  Sub 958 958 953; Sub 934 934 958; Sub 909 909 959; Add 934 934 909; Sub 1004 1004 844; Sub 836 836 988;
  Sub 833 833 834; Add 836 836 833; Sub 843 843 827; Add 836 836 843; Sub 1004 1004 836; Sub 1290 1290 726;
  Sub 720 720 1163; Sub 717 717 718; Add 720 720 717; Sub 725 725 716; Add 720 720 725; Sub 1290 1290 720;
  Add 1290 1290 1308; Add 1004 1004 1290; Add 934 934 1004; Mul 1004 934 46; Mul 1053 1053 753; Mul 915 915 741;
  Mul 929 929 745; Add 915 915 929; Sub 1053 1053 915; Mul 935 935 938; Mul 933 933 133; Sub 935 935 933;
  Add 1053 1053 935; Mul 886 886 1; Mul 1008 1008 0; Sub 886 886 1008; Mul 961 961 735; Mul 892 892 731;
  Add 961 961 892; Sub 886 886 961; Add 1053 1053 886; Mul 886 1053 54; Add 1004 1004 886; Mul 799 799 744;
  Mul 829 829 747; Add 799 799 829; Mul 1007 1007 749; Sub 799 799 1007; Mul 803 803 807; Mul 801 801 1180;
  Sub 803 803 801; Add 799 799 803; Mul 773 773 737; Mul 820 820 734; Mul 803 813 729; Sub 820 820 803;
  Add 773 773 820; Mul 992 992 0; Mul 994 994 1; Sub 992 992 994; Add 773 773 992; Add 799 799 773;
  Mul 773 799 55; Add 1004 1004 773; Mul 996 996 645; Mul 638 638 660; Mul 658 658 664; Add 638 638 658;
  Sub 996 996 638; Mul 672 672 675; Mul 665 665 627; Sub 672 672 665; Add 996 996 672; Mul 672 697 679;
  Mul 691 691 671; Sub 672 672 691; Mul 670 670 669; Sub 672 672 670; Mul 896 896 1; Mul 964 964 0;
  Sub 896 896 964; Add 672 672 896].
Definition casadi_f0_71 : list instruction := [
  Add 996 996 672; Mul 672 996 53; Add 1004 1004 672; Mul 672 1054 67; Add 1004 1004 672; Mul 672 600 58;
  Add 1004 1004 672; Sub 519 519 1004; Mul 264 4 264; Mul 1168 5 1168; Sub 264 264 1168; Sub 519 519 264;
  Mul 264 519 470; Mul 1168 519 515; Div 1004 1168 508; Add 507 507 507; Mul 672 965 519; Arg 896 2 1;
  Mul 765 1 765; Mul 762 0 762; Sub 765 765 762; Mul 908 735 908; Mul 1044 731 1044; Add 908 908 1044;
  Sub 765 765 908; Mul 908 765 46; Mul 939 1 939; Mul 919 0 919; Sub 939 939 919; Mul 761 735 761;
  Mul 906 731 906; Add 761 761 906; Sub 939 939 761; Mul 761 939 54; Add 908 908 761; Mul 535 1 535;
  Mul 791 0 791; Sub 761 535 791; Mul 906 735 772; Mul 919 731 695; Add 906 906 919; Sub 761 761 906;
  Mul 906 761 55; Add 908 908 906; Mul 527 1 527; Mul 647 0 647; Sub 906 527 647; Mul 919 735 628;
  Mul 1044 731 699; Add 919 919 1044; Sub 919 906 919; Mul 1044 919 53; Add 908 908 1044; Mul 1044 1 134;
  Mul 762 0 615; Sub 964 1044 762; Mul 670 735 560; Mul 691 731 972; Add 670 670 691; Sub 670 964 670;
  Mul 691 670 67; Add 908 908 691; Mul 691 1 146; Mul 665 0 601; Sub 627 691 665; Mul 675 735 989;
  Mul 638 731 967; Add 675 675 638; Sub 675 627 675; Mul 638 675 58; Add 908 908 638; Sub 896 896 908;
  Mul 259 259 56; Mul 247 247 1161; Sub 259 259 247; Mul 243 243 633; Mul 214 214 1072; Sub 243 243 214;
  Mul 214 23 786; Mul 1072 22 587; Sub 214 214 1072; Mul 541 19 541; Mul 1066 14 1066; Sub 541 541 1066;
  Add 214 214 541; Add 243 243 214; Mul 117 12 117; Mul 118 7 118; Sub 117 117 118; Add 117 243 117;
  Add 259 259 117; Mul 287 3 287; Sub 287 259 287; Mul 278 278 1269; Sub 287 287 278; Sub 896 896 287;
  Mul 287 871 896; Add 672 672 287; Arg 287 2 2; Mul 819 737 819; Mul 814 734 814; Mul 813 729 813;
  Sub 814 814 813; Add 819 819 814; Mul 857 0 857; Mul 867 1 867; Sub 857 857 867; Add 819 819 857;
  Mul 857 819 46; Mul 907 907 69; Mul 962 962 764; Mul 1052 1052 758; Sub 962 962 1052; Add 907 907 962;
  Mul 1051 1051 753; Mul 1045 1045 745; Sub 1051 1051 1045; Mul 784 784 741; Sub 1051 1051 784;
  Add 907 907 1051; Mul 825 825 1; Mul 860 860 0; Sub 825 825 860; Mul 818 818 735; Mul 826 826 731;
  Add 818 818 826; Sub 825 825 818; Add 907 907 825; Mul 825 907 54; Add 857 857 825; Mul 772 737 772;
  Mul 695 734 695; Mul 1003 729 1003; Sub 695 695 1003; Add 772 772 695; Sub 791 791 535; Add 772 772 791;
  Mul 791 772 55; Add 857 857 791; Mul 791 737 628; Mul 535 734 699; Mul 695 729 536; Sub 535 535 695;
  Add 791 791 535; Sub 647 647 527; Add 791 791 647; Mul 647 791 53; Add 857 857 647; Mul 647 737 560].
Definition casadi_f0_72 : list instruction := [
  Mul 527 734 972; Mul 535 729 969; Sub 527 527 535; Add 647 647 527; Sub 762 762 1044; Add 647 647 762;
  Mul 762 647 67; Add 857 857 762; Mul 762 737 989; Mul 1044 734 967; Mul 527 729 986; Sub 1044 1044 527;
  Add 762 762 1044; Sub 665 665 691; Add 762 762 665; Mul 665 762 58; Add 857 857 665; Sub 287 287 857;
  Add 287 287 259; Mul 259 769 287; Add 672 672 259; Arg 259 2 3; Mul 697 679 697; Mul 977 671 977;
  Sub 697 697 977; Mul 688 669 688; Sub 697 697 688; Mul 751 1 751; Mul 715 0 715; Sub 751 751 715;
  Add 697 697 751; Mul 751 697 46; Mul 715 1001 69; Mul 688 888 764; Mul 977 816 758; Sub 688 688 977;
  Add 715 715 688; Mul 688 990 753; Mul 977 1010 745; Sub 688 688 977; Mul 977 663 741; Sub 688 688 977;
  Add 715 715 688; Mul 88 88 1; Mul 290 290 0; Sub 688 88 290; Mul 977 1188 735; Mul 857 998 731;
  Add 977 977 857; Sub 688 688 977; Add 715 715 688; Mul 688 715 54; Add 751 751 688; Mul 1001 1001 131;
  Mul 816 816 757; Mul 888 888 760; Add 816 816 888; Add 1001 1001 816; Mul 663 663 744; Mul 1010 1010 747;
  Mul 990 990 749; Sub 1010 1010 990; Add 663 663 1010; Add 1001 1001 663; Mul 1188 1188 737; Mul 998 998 734;
  Mul 1002 1002 729; Sub 998 998 1002; Add 1188 1188 998; Sub 290 290 88; Add 1188 1188 290; Add 1001 1001 1188;
  Mul 1188 1001 55; Add 751 751 1188; Mul 536 679 536; Mul 699 671 699; Sub 536 536 699; Mul 628 669 628;
  Sub 536 536 628; Add 536 536 906; Mul 906 536 53; Add 751 751 906; Mul 906 679 969; Mul 628 671 972;
  Sub 906 906 628; Mul 628 669 560; Sub 906 906 628; Add 906 906 964; Mul 964 906 67; Add 751 751 964;
  Mul 964 679 986; Mul 628 671 967; Sub 964 964 628; Mul 628 669 989; Sub 964 964 628; Add 964 964 627;
  Mul 627 964 58; Add 751 751 627; Sub 259 259 751; Sub 259 259 243; Mul 243 607 259; Add 672 672 243;
  Arg 243 2 4; Mul 1310 520 1310; Mul 533 539 533; Mul 532 551 532; Add 533 533 532; Add 1310 1310 533;
  Mul 634 99 634; Mul 572 42 572; Mul 1308 20 1308; Add 572 572 1308; Add 634 634 572; Sub 1310 1310 634;
  Mul 634 1310 46; Mul 572 981 69; Mul 1308 881 764; Mul 533 701 758; Sub 1308 1308 533; Add 572 572 1308;
  Mul 1308 997 753; Mul 533 987 745; Sub 1308 1308 533; Mul 533 11 741; Sub 1308 1308 533; Add 572 572 1308;
  Mul 1308 676 735; Mul 533 973 731; Add 1308 1308 533; Mul 1289 1289 1; Mul 538 538 0; Sub 533 1289 538;
  Add 1308 1308 533; Add 572 572 1308; Mul 1308 572 54; Add 634 634 1308; Mul 1308 981 131; Mul 532 701 757;
  Mul 751 881 760; Add 532 532 751; Add 1308 1308 532; Mul 532 11 744; Mul 751 987 747; Mul 627 997 749;
  Sub 751 751 627; Add 532 532 751; Add 1308 1308 532; Mul 532 87 729; Mul 751 973 734].
Definition casadi_f0_73 : list instruction := [
  Sub 532 532 751; Mul 751 676 737; Sub 532 532 751; Sub 538 538 1289; Add 532 532 538; Add 1308 1308 532;
  Mul 532 1308 55; Add 634 634 532; Mul 981 981 968; Mul 881 881 667; Mul 701 701 677; Sub 881 881 701;
  Add 981 981 881; Mul 997 997 645; Mul 987 987 664; Sub 997 997 987; Mul 11 11 660; Sub 997 997 11;
  Add 981 981 997; Mul 676 676 669; Mul 973 973 671; Mul 87 87 679; Sub 973 973 87; Add 676 676 973;
  Add 676 676 533; Add 981 981 676; Mul 676 981 53; Add 634 634 676; Mul 560 520 560; Mul 972 539 972;
  Mul 969 551 969; Add 972 972 969; Add 560 560 972; Mul 615 99 615; Mul 134 42 134; Mul 972 20 1054;
  Add 134 134 972; Add 615 615 134; Sub 560 560 615; Mul 615 560 67; Add 634 634 615; Mul 615 520 989;
  Mul 134 539 967; Mul 972 551 986; Add 134 134 972; Add 615 615 134; Mul 134 99 601; Mul 972 42 146;
  Mul 969 20 600; Add 972 972 969; Add 134 134 972; Sub 615 615 134; Mul 134 615 58; Add 634 634 134;
  Sub 243 243 634; Add 243 243 549; Mul 549 222 243; Add 672 672 549; Arg 549 2 5; Mul 46 1262 46;
  Mul 69 979 69; Mul 764 879 764; Mul 758 698 758; Sub 764 764 758; Add 69 69 764; Mul 753 995 753;
  Mul 745 682 745; Sub 753 753 745; Mul 741 142 741; Sub 753 753 741; Add 69 69 753; Mul 735 581 735;
  Mul 731 971 731; Add 735 735 731; Mul 731 1300 1; Mul 753 90 0; Sub 741 731 753; Add 735 735 741;
  Add 69 69 735; Mul 54 69 54; Add 46 46 54; Mul 131 979 131; Mul 757 698 757; Mul 760 879 760; Add 757 757 760;
  Add 131 131 757; Mul 744 142 744; Mul 747 682 747; Mul 749 995 749; Sub 747 747 749; Add 744 744 747;
  Add 131 131 744; Mul 729 982 729; Mul 734 971 734; Sub 729 729 734; Mul 737 581 737; Sub 729 729 737;
  Sub 753 753 731; Add 729 729 753; Add 131 131 729; Mul 55 131 55; Add 46 46 55; Mul 968 979 968;
  Mul 667 879 667; Mul 677 698 677; Sub 667 667 677; Add 968 968 667; Mul 645 995 645; Mul 664 682 664;
  Sub 645 645 664; Mul 660 142 660; Sub 645 645 660; Add 968 968 645; Mul 669 581 669; Mul 671 971 671;
  Mul 679 982 679; Sub 671 671 679; Add 669 669 671; Add 669 669 741; Add 968 968 669; Mul 53 968 53;
  Add 46 46 53; Mul 979 979 1305; Mul 698 698 630; Mul 879 879 625; Add 698 698 879; Add 979 979 698;
  Mul 142 142 614; Mul 682 682 619; Mul 995 995 621; Add 682 682 995; Add 142 142 682; Add 979 979 142;
  Mul 581 581 520; Mul 971 971 539; Mul 982 982 551; Add 971 971 982; Add 581 581 971; Mul 90 90 99;
  Mul 1300 1300 42; Mul 971 1262 20; Add 1300 1300 971; Add 90 90 1300; Add 581 581 90; Sub 979 979 581;
  Mul 67 979 67; Add 46 46 67; Mul 35 35 989; Mul 103 103 967].
Definition casadi_f0_74 : list instruction := [
  Mul 137 137 986; Add 103 103 137; Add 35 35 103; Mul 100 100 601; Mul 34 34 146; Mul 24 24 600; Add 34 34 24;
  Add 100 100 34; Sub 35 35 100; Mul 58 35 58; Add 46 46 58; Sub 549 549 46; Add 549 549 1073; Mul 1073 513 549;
  Add 672 672 1073; Div 672 672 508; Div 1073 672 508; Mul 1073 1073 514; Div 513 513 508; Mul 514 549 515;
  Mul 513 513 514; Add 1073 1073 513; Div 222 222 508; Mul 513 243 515; Mul 222 222 513; Add 1073 1073 222;
  Div 607 607 508; Mul 222 259 515; Mul 607 607 222; Add 1073 1073 607; Div 769 769 508; Mul 607 287 515;
  Mul 769 769 607; Add 1073 1073 769; Div 871 871 508; Mul 515 896 515; Mul 871 871 515; Add 1073 1073 871;
  Div 965 965 508; Mul 965 965 1168; Add 1073 1073 965; Add 965 508 508; Div 1073 1073 965; Mul 507 507 1073;
  Sub 1004 1004 507; Mul 507 497 1004; Sub 264 264 507; Mul 507 672 470; Div 514 514 508; Add 506 506 506;
  Mul 506 506 1073; Sub 514 514 506; Mul 506 468 514; Add 507 507 506; Div 513 513 508; Add 512 512 512;
  Mul 512 512 1073; Sub 513 513 512; Mul 512 505 513; Add 507 507 512; Div 222 222 508; Add 511 511 511;
  Mul 511 511 1073; Sub 222 222 511; Mul 511 503 222; Add 507 507 511; Div 607 607 508; Add 510 510 510;
  Mul 510 510 1073; Sub 607 607 510; Mul 510 501 607; Add 507 507 510; Div 515 515 508; Add 509 509 509;
  Mul 509 509 1073; Sub 515 515 509; Mul 509 499 515; Add 507 507 509; Mul 509 496 1004; Add 507 507 509;
  Mul 495 495 507; Sub 264 264 495; Div 495 264 463; Add 462 462 462; Mul 509 496 519; Mul 1073 499 896;
  Add 509 509 1073; Mul 1073 501 287; Add 509 509 1073; Mul 1073 503 259; Add 509 509 1073; Mul 1073 505 243;
  Add 509 509 1073; Mul 1073 468 549; Add 509 509 1073; Mul 1073 497 672; Sub 509 509 1073; Div 509 509 463;
  Div 1073 509 463; Mul 1073 1073 469; Div 469 468 463; Mul 508 549 470; Mul 510 497 514; Sub 508 508 510;
  Mul 494 494 507; Sub 508 508 494; Mul 469 469 508; Add 1073 1073 469; Div 469 505 463; Mul 494 243 470;
  Mul 510 497 513; Sub 494 494 510; Mul 504 504 507; Sub 494 494 504; Mul 469 469 494; Add 1073 1073 469;
  Div 469 503 463; Mul 504 259 470; Mul 510 497 222; Sub 504 504 510; Mul 502 502 507; Sub 504 504 502;
  Mul 469 469 504; Add 1073 1073 469; Div 469 501 463; Mul 502 287 470; Mul 510 497 607; Sub 502 502 510;
  Mul 500 500 507; Sub 502 502 500; Mul 469 469 502; Add 1073 1073 469; Div 469 499 463; Mul 470 896 470;
  Mul 497 497 515; Sub 470 470 497; Mul 498 498 507; Sub 470 470 498; Mul 469 469 470; Add 1073 1073 469;
  Div 469 496 463; Mul 469 469 264; Add 1073 1073 469; Add 469 463 463; Div 1073 1073 469; Mul 462 462 1073;
  Sub 495 495 462; Mul 462 509 433; Div 508 508 463].
Definition casadi_f0_75 : list instruction := [
  Add 461 461 461; Mul 461 461 1073; Sub 508 508 461; Mul 461 431 508; Add 462 462 461; Div 494 494 463;
  Add 467 467 467; Mul 467 467 1073; Sub 494 494 467; Mul 467 460 494; Add 462 462 467; Div 504 504 463;
  Add 466 466 466; Mul 466 466 1073; Sub 504 504 466; Mul 466 458 504; Add 462 462 466; Div 502 502 463;
  Add 465 465 465; Mul 465 465 1073; Sub 502 502 465; Mul 465 456 502; Add 462 462 465; Div 470 470 463;
  Add 464 464 464; Mul 464 464 1073; Sub 470 470 464; Mul 464 454 470; Add 462 462 464; Mul 464 451 495;
  Add 462 462 464; Mul 464 451 462; Sub 464 495 464; Mul 1073 443 464; Mul 463 519 403; Sub 1073 1073 463;
  Mul 463 431 462; Sub 463 508 463; Mul 465 401 463; Mul 466 509 403; Sub 465 465 466; Mul 466 460 462;
  Sub 466 494 466; Mul 467 423 466; Add 465 465 467; Mul 467 458 462; Sub 467 504 467; Mul 461 421 467;
  Add 465 465 461; Mul 461 456 462; Sub 461 502 461; Mul 469 419 461; Sub 465 465 469; Mul 469 454 462;
  Sub 469 470 469; Mul 264 414 469; Sub 465 465 264; Mul 264 417 464; Add 465 465 264; Mul 444 444 465;
  Sub 1073 1073 444; Mul 444 519 433; Mul 495 452 495; Sub 444 444 495; Mul 450 450 462; Sub 444 444 450;
  Mul 496 496 507; Sub 1004 1004 496; Mul 496 489 1004; Sub 444 444 496; Mul 496 672 433; Mul 468 468 507;
  Sub 514 514 468; Mul 468 431 514; Add 496 496 468; Mul 505 505 507; Sub 513 513 505; Mul 505 460 513;
  Add 496 496 505; Mul 503 503 507; Sub 222 222 503; Mul 503 458 222; Add 496 496 503; Mul 501 501 507;
  Sub 607 607 501; Mul 501 456 607; Add 496 496 501; Mul 499 499 507; Sub 515 515 499; Mul 499 454 515;
  Add 496 496 499; Mul 499 451 1004; Add 496 496 499; Mul 488 488 496; Sub 444 444 488; Div 488 444 426;
  Add 425 425 425; Mul 499 451 519; Mul 507 454 896; Add 499 499 507; Mul 507 456 287; Add 499 499 507;
  Mul 507 458 259; Add 499 499 507; Mul 507 460 243; Add 499 499 507; Mul 507 431 549; Add 499 499 507;
  Mul 507 489 672; Sub 499 499 507; Mul 507 452 509; Sub 499 499 507; Div 499 499 426; Div 507 499 426;
  Mul 507 507 432; Div 432 431 426; Mul 501 549 433; Mul 503 489 514; Sub 501 501 503; Mul 508 452 508;
  Sub 501 501 508; Mul 449 449 462; Sub 501 501 449; Mul 487 487 496; Sub 501 501 487; Mul 432 432 501;
  Add 507 507 432; Div 432 460 426; Mul 487 243 433; Mul 449 489 513; Sub 487 487 449; Mul 494 452 494;
  Sub 487 487 494; Mul 459 459 462; Sub 487 487 459; Mul 493 493 496; Sub 487 487 493; Mul 432 432 487;
  Add 507 507 432; Div 432 458 426; Mul 493 259 433; Mul 459 489 222; Sub 493 493 459; Mul 504 452 504;
  Sub 493 493 504; Mul 457 457 462; Sub 493 493 457; Mul 492 492 496; Sub 493 493 492].
Definition casadi_f0_76 : list instruction := [
  Mul 432 432 493; Add 507 507 432; Div 432 456 426; Mul 492 287 433; Mul 457 489 607; Sub 492 492 457;
  Mul 502 452 502; Sub 492 492 502; Mul 455 455 462; Sub 492 492 455; Mul 491 491 496; Sub 492 492 491;
  Mul 432 432 492; Add 507 507 432; Div 432 454 426; Mul 433 896 433; Mul 489 489 515; Sub 433 433 489;
  Mul 452 452 470; Sub 433 433 452; Mul 453 453 462; Sub 433 433 453; Mul 490 490 496; Sub 433 433 490;
  Mul 432 432 433; Add 507 507 432; Div 432 451 426; Mul 432 432 444; Add 507 507 432; Add 432 426 426;
  Div 507 507 432; Mul 425 425 507; Sub 488 488 425; Mul 425 415 488; Add 1073 1073 425; Div 501 501 426;
  Add 424 424 424; Mul 424 424 507; Sub 501 501 424; Mul 424 401 501; Mul 425 499 403; Sub 424 424 425;
  Div 487 487 426; Add 430 430 430; Mul 430 430 507; Sub 487 487 430; Mul 430 423 487; Add 424 424 430;
  Div 493 493 426; Add 429 429 429; Mul 429 429 507; Sub 493 493 429; Mul 429 421 493; Add 424 424 429;
  Div 492 492 426; Add 428 428 428; Mul 428 428 507; Sub 492 492 428; Mul 428 419 492; Sub 424 424 428;
  Div 433 433 426; Add 427 427 427; Mul 427 427 507; Sub 433 433 427; Mul 427 414 433; Sub 424 424 427;
  Mul 427 417 488; Add 424 424 427; Mul 416 416 424; Sub 1073 1073 416; Mul 451 451 496; Sub 1004 1004 451;
  Mul 451 482 1004; Add 1073 1073 451; Mul 431 431 496; Sub 514 514 431; Mul 431 401 514; Mul 451 672 403;
  Sub 431 431 451; Mul 460 460 496; Sub 513 513 460; Mul 460 423 513; Add 431 431 460; Mul 458 458 496;
  Sub 222 222 458; Mul 458 421 222; Add 431 431 458; Mul 456 456 496; Sub 607 607 456; Mul 456 419 607;
  Sub 431 431 456; Mul 454 454 496; Sub 515 515 454; Mul 454 414 515; Sub 431 431 454; Mul 454 417 1004;
  Add 431 431 454; Mul 483 483 431; Sub 1073 1073 483; Div 483 1073 396; Add 395 395 395; Mul 454 414 896;
  Mul 496 417 519; Sub 454 454 496; Mul 496 419 287; Add 454 454 496; Mul 496 421 259; Sub 454 454 496;
  Mul 496 423 243; Sub 454 454 496; Mul 496 401 549; Sub 454 454 496; Mul 496 482 672; Sub 454 454 496;
  Mul 496 443 509; Sub 454 454 496; Mul 496 415 499; Sub 454 454 496; Div 454 454 396; Div 496 454 396;
  Mul 496 496 402; Div 402 401 396; Mul 456 443 463; Mul 458 549 403; Sub 456 456 458; Mul 448 448 465;
  Add 456 456 448; Mul 448 482 514; Add 456 456 448; Mul 448 415 501; Add 456 456 448; Mul 412 412 424;
  Sub 456 456 412; Mul 480 480 431; Sub 456 456 480; Mul 402 402 456; Add 496 496 402; Div 402 423 396;
  Mul 480 443 466; Mul 412 243 403; Sub 480 480 412; Mul 447 447 465; Add 480 480 447; Mul 447 482 513;
  Add 480 480 447; Mul 447 415 487; Add 480 480 447; Mul 422 422 424; Sub 480 480 422].
Definition casadi_f0_77 : list instruction := [
  Mul 486 486 431; Add 480 480 486; Mul 402 402 480; Add 496 496 402; Div 402 421 396; Mul 486 443 467;
  Mul 422 259 403; Sub 486 486 422; Mul 446 446 465; Sub 486 486 446; Mul 446 482 222; Add 486 486 446;
  Mul 446 415 493; Add 486 486 446; Mul 420 420 424; Sub 486 486 420; Mul 485 485 431; Sub 486 486 485;
  Mul 402 402 486; Add 496 496 402; Div 402 419 396; Mul 485 287 403; Mul 420 443 461; Sub 485 485 420;
  Mul 445 445 465; Add 485 485 445; Mul 445 482 607; Sub 485 485 445; Mul 445 415 492; Sub 485 485 445;
  Mul 418 418 424; Add 485 485 418; Mul 484 484 431; Add 485 485 484; Mul 402 402 485; Add 496 496 402;
  Div 402 417 396; Mul 402 402 1073; Add 496 496 402; Div 402 414 396; Mul 403 896 403; Mul 443 443 469;
  Sub 403 403 443; Mul 442 442 465; Add 403 403 442; Mul 482 482 515; Sub 403 403 482; Mul 415 415 433;
  Sub 403 403 415; Mul 413 413 424; Add 403 403 413; Mul 481 481 431; Add 403 403 481; Mul 402 402 403;
  Add 496 496 402; Add 402 396 396; Div 496 496 402; Mul 395 395 496; Sub 483 483 395; Div 456 456 396;
  Add 394 394 394; Mul 394 394 496; Sub 456 456 394; Mul 394 375 456; Mul 395 454 379; Sub 394 394 395;
  Div 480 480 396; Add 400 400 400; Mul 400 400 496; Sub 480 480 400; Mul 400 393 480; Add 394 394 400;
  Div 486 486 396; Add 399 399 399; Mul 399 399 496; Sub 486 486 399; Mul 399 391 486; Add 394 394 399;
  Div 485 485 396; Add 398 398 398; Mul 398 398 496; Sub 485 485 398; Mul 398 389 485; Sub 394 394 398;
  Mul 398 387 483; Add 394 394 398; Div 403 403 396; Add 397 397 397; Mul 397 397 496; Sub 403 403 397;
  Mul 397 384 403; Sub 394 394 397; Mul 397 387 394; Sub 397 483 397; Mul 496 375 394; Sub 496 456 496;
  Mul 396 216 496; Mul 398 454 378; Sub 396 396 398; Mul 398 393 394; Sub 398 480 398; Mul 399 288 398;
  Add 396 396 399; Mul 399 391 394; Sub 399 486 399; Mul 400 298 399; Add 396 396 400; Mul 400 389 394;
  Add 400 485 400; Mul 395 366 400; Add 396 396 395; Mul 395 201 397; Add 396 396 395; Mul 395 384 394;
  Add 395 403 395; Mul 402 304 395; Sub 396 396 402; Mul 402 201 396; Sub 402 397 402; Mul 481 419 465;
  Add 461 461 481; Mul 481 401 465; Sub 481 481 463; Mul 463 375 481; Mul 413 509 379; Sub 463 463 413;
  Mul 413 423 465; Sub 413 413 466; Mul 466 393 413; Add 463 463 466; Mul 466 421 465; Sub 467 467 466;
  Mul 466 391 467; Sub 463 463 466; Mul 466 389 461; Sub 463 463 466; Mul 466 414 465; Add 469 469 466;
  Mul 466 384 469; Sub 463 463 466; Mul 465 417 465; Sub 464 464 465; Mul 465 387 464; Sub 463 463 465;
  Mul 465 389 463; Add 465 461 465; Mul 466 434 465; Mul 415 375 463; Sub 415 481 415].
Definition casadi_f0_78 : list instruction := [
  Mul 482 216 415; Mul 442 509 378; Sub 482 482 442; Mul 442 393 463; Sub 442 413 442; Mul 443 288 442;
  Add 482 482 443; Mul 443 391 463; Add 443 467 443; Mul 1073 298 443; Sub 482 482 1073; Mul 1073 366 465;
  Add 482 482 1073; Mul 1073 384 463; Add 1073 469 1073; Mul 484 304 1073; Sub 482 482 484; Mul 484 387 463;
  Add 484 464 484; Mul 418 201 484; Sub 482 482 418; Mul 418 289 482; Add 466 466 418; Mul 418 419 424;
  Add 492 492 418; Mul 418 499 379; Mul 445 401 424; Sub 501 501 445; Mul 445 375 501; Add 418 418 445;
  Mul 445 423 424; Sub 487 487 445; Mul 445 393 487; Add 418 418 445; Mul 445 421 424; Sub 493 493 445;
  Mul 445 391 493; Add 418 418 445; Mul 445 389 492; Add 418 418 445; Mul 445 414 424; Add 433 433 445;
  Mul 445 384 433; Add 418 418 445; Mul 424 417 424; Sub 488 488 424; Mul 424 387 488; Add 418 418 424;
  Mul 424 389 418; Sub 424 492 424; Mul 445 404 424; Add 466 466 445; Mul 445 366 424; Mul 420 499 378;
  Mul 446 375 418; Sub 446 501 446; Mul 422 216 446; Add 420 420 422; Mul 422 393 418; Sub 422 487 422;
  Mul 447 288 422; Add 420 420 447; Mul 447 391 418; Sub 447 493 447; Mul 412 298 447; Add 420 420 412;
  Sub 445 445 420; Mul 420 384 418; Sub 420 433 420; Mul 412 304 420; Sub 445 445 412; Mul 412 387 418;
  Sub 412 488 412; Mul 448 201 412; Sub 445 445 448; Mul 448 296 445; Add 466 466 448; Mul 448 381 400;
  Add 466 466 448; Mul 302 302 396; Add 466 466 302; Mul 419 419 431; Add 607 607 419; Mul 423 423 431;
  Sub 423 423 513; Mul 513 393 423; Mul 419 672 379; Mul 401 401 431; Sub 514 514 401; Mul 401 375 514;
  Add 419 419 401; Sub 513 513 419; Mul 421 421 431; Sub 222 222 421; Mul 421 391 222; Sub 513 513 421;
  Mul 421 389 607; Sub 513 513 421; Mul 414 414 431; Add 515 515 414; Mul 414 384 515; Sub 513 513 414;
  Mul 417 417 431; Sub 1004 1004 417; Mul 417 387 1004; Sub 513 513 417; Mul 417 389 513; Add 417 607 417;
  Mul 431 472 417; Add 466 466 431; Mul 431 287 379; Mul 461 437 461; Sub 431 431 461; Mul 438 438 463;
  Add 431 431 438; Mul 492 407 492; Sub 431 431 492; Mul 409 409 418; Sub 431 431 409; Mul 607 475 607;
  Sub 431 431 607; Mul 485 385 485; Sub 431 431 485; Mul 388 388 394; Add 431 431 388; Mul 477 477 513;
  Add 431 431 477; Div 477 431 370; Add 372 372 372; Mul 388 387 519; Mul 485 384 896; Add 388 388 485;
  Mul 485 389 287; Add 388 388 485; Mul 485 391 259; Add 388 388 485; Mul 485 393 243; Add 388 388 485;
  Mul 485 375 549; Add 388 388 485; Mul 485 475 672; Sub 388 388 485; Mul 485 437 509; Sub 388 388 485;
  Mul 485 407 499; Sub 388 388 485; Mul 485 385 454; Sub 388 388 485; Div 388 388 370].
Definition casadi_f0_79 : list instruction := [
  Div 485 388 370; Mul 485 485 376; Div 376 375 370; Mul 607 549 379; Mul 481 437 481; Add 607 607 481;
  Mul 441 441 463; Sub 607 607 441; Mul 501 407 501; Sub 607 607 501; Mul 405 405 418; Sub 607 607 405;
  Mul 405 475 514; Sub 607 607 405; Mul 456 385 456; Add 607 607 456; Mul 382 382 394; Sub 607 607 382;
  Mul 473 473 513; Add 607 607 473; Mul 376 376 607; Add 485 485 376; Div 376 393 370; Mul 473 243 379;
  Mul 413 437 413; Add 473 473 413; Mul 440 440 463; Sub 473 473 440; Mul 487 407 487; Sub 473 473 487;
  Mul 411 411 418; Sub 473 473 411; Mul 411 475 423; Add 473 473 411; Mul 480 385 480; Add 473 473 480;
  Mul 392 392 394; Sub 473 473 392; Mul 479 479 513; Sub 473 473 479; Mul 376 376 473; Add 485 485 376;
  Div 376 391 370; Mul 479 259 379; Mul 467 437 467; Sub 479 479 467; Mul 439 439 463; Add 479 479 439;
  Mul 493 407 493; Sub 479 479 493; Mul 410 410 418; Sub 479 479 410; Mul 410 475 222; Sub 479 479 410;
  Mul 486 385 486; Add 479 479 486; Mul 390 390 394; Sub 479 479 390; Mul 478 478 513; Add 479 479 478;
  Mul 376 376 479; Add 485 485 376; Div 389 389 370; Mul 389 389 431; Add 485 485 389; Div 389 384 370;
  Mul 431 896 379; Mul 469 437 469; Sub 431 431 469; Mul 435 435 463; Add 431 431 435; Mul 433 407 433;
  Sub 431 431 433; Mul 408 408 418; Sub 431 431 408; Mul 403 385 403; Sub 431 431 403; Mul 383 383 394;
  Add 431 431 383; Mul 383 475 515; Sub 431 431 383; Mul 476 476 513; Add 431 431 476; Mul 389 389 431;
  Add 485 485 389; Div 389 387 370; Mul 379 519 379; Mul 437 437 464; Sub 379 379 437; Mul 436 436 463;
  Add 379 379 436; Mul 407 407 488; Sub 379 379 407; Mul 406 406 418; Sub 379 379 406; Mul 385 385 483;
  Add 379 379 385; Mul 386 386 394; Sub 379 379 386; Mul 475 475 1004; Sub 379 379 475; Mul 474 474 513;
  Add 379 379 474; Mul 389 389 379; Add 485 485 389; Add 389 370 370; Div 485 485 389; Mul 372 372 485;
  Sub 477 477 372; Mul 372 364 477; Add 466 466 372; Mul 372 366 477; Mul 389 388 378; Div 607 607 370;
  Add 368 368 368; Mul 368 368 485; Sub 607 607 368; Mul 368 216 607; Add 389 389 368; Div 473 473 370;
  Add 374 374 374; Mul 374 374 485; Sub 473 473 374; Mul 374 288 473; Add 389 389 374; Div 479 479 370;
  Add 373 373 373; Mul 373 373 485; Sub 479 479 373; Mul 373 298 479; Add 389 389 373; Sub 372 372 389;
  Div 431 431 370; Add 371 371 371; Mul 371 371 485; Sub 431 431 371; Mul 371 304 431; Sub 372 372 371;
  Div 379 379 370; Add 369 369 369; Mul 369 369 485; Sub 379 379 369; Mul 369 201 379; Sub 372 372 369;
  Mul 369 320 372; Sub 466 466 369; Mul 393 393 513; Sub 423 423 393; Mul 393 288 423].
Definition casadi_f0_80 : list instruction := [
  Mul 369 672 378; Mul 375 375 513; Add 514 514 375; Mul 375 216 514; Add 369 369 375; Sub 393 393 369;
  Mul 391 391 513; Add 222 222 391; Mul 391 298 222; Sub 393 393 391; Mul 391 366 417; Add 393 393 391;
  Mul 384 384 513; Add 515 515 384; Mul 384 304 515; Sub 393 393 384; Mul 387 387 513; Add 1004 1004 387;
  Mul 387 201 1004; Sub 393 393 387; Mul 387 199 393; Add 466 466 387; Mul 387 287 378; Sub 466 466 387;
  Div 387 466 291; Add 402 402 387; Add 387 321 321; Mul 513 201 519; Mul 384 304 896; Add 513 513 384;
  Mul 287 366 287; Sub 513 513 287; Mul 287 298 259; Add 513 513 287; Mul 287 288 243; Add 513 513 287;
  Mul 287 216 549; Add 513 513 287; Mul 672 472 672; Sub 513 513 672; Mul 509 434 509; Sub 513 513 509;
  Mul 499 404 499; Sub 513 513 499; Mul 454 381 454; Sub 513 513 454; Mul 388 364 388; Sub 513 513 388;
  Div 513 513 291; Div 513 513 291; Mul 513 513 377; Div 377 216 291; Mul 388 434 415; Mul 454 359 482;
  Sub 388 388 454; Mul 454 404 446; Sub 388 388 454; Mul 454 194 445; Add 388 388 454; Mul 454 381 496;
  Add 388 388 454; Mul 199 199 396; Sub 388 388 199; Mul 514 472 514; Sub 388 388 514; Mul 514 364 607;
  Sub 388 388 514; Mul 514 202 372; Add 388 388 514; Mul 471 471 393; Add 388 388 471; Mul 549 549 378;
  Add 388 388 549; Mul 377 377 388; Add 513 513 377; Div 377 288 291; Mul 549 434 442; Mul 339 339 482;
  Sub 549 549 339; Mul 339 404 422; Sub 549 549 339; Mul 339 292 445; Add 549 549 339; Mul 339 381 398;
  Add 549 549 339; Mul 289 289 396; Sub 549 549 289; Mul 289 472 423; Add 549 549 289; Mul 289 364 473;
  Sub 549 549 289; Mul 289 355 372; Add 549 549 289; Mul 359 359 393; Sub 549 549 359; Mul 243 243 378;
  Add 549 549 243; Mul 377 377 549; Add 513 513 377; Div 377 298 291; Mul 292 292 482; Mul 243 434 443;
  Sub 292 292 243; Mul 243 404 447; Sub 292 292 243; Mul 367 367 445; Add 292 292 367; Mul 367 381 399;
  Add 292 292 367; Mul 296 296 396; Sub 292 292 296; Mul 296 472 222; Sub 292 292 296; Mul 296 364 479;
  Sub 292 292 296; Mul 296 338 372; Add 292 292 296; Mul 194 194 393; Add 292 292 194; Mul 259 259 378;
  Add 292 292 259; Mul 377 377 292; Add 513 513 377; Div 377 366 291; Mul 377 377 466; Add 513 513 377;
  Div 377 304 291; Mul 355 355 482; Mul 466 434 1073; Sub 355 355 466; Mul 466 404 420; Sub 355 355 466;
  Mul 338 338 445; Add 355 355 338; Mul 338 381 395; Sub 355 355 338; Mul 320 320 396; Add 355 355 320;
  Mul 320 472 515; Sub 355 355 320; Mul 320 364 431; Sub 355 355 320; Mul 365 365 372; Add 355 355 365;
  Mul 202 202 393; Add 355 355 202; Mul 896 896 378; Add 355 355 896; Mul 377 377 355].
Definition casadi_f0_81 : list instruction := [
  Add 513 513 377; Div 377 201 291; Mul 896 342 482; Mul 434 434 484; Sub 896 896 434; Mul 404 404 412;
  Sub 896 896 404; Mul 404 335 445; Add 896 896 404; Mul 381 381 397; Add 896 896 381; Mul 321 321 396;
  Sub 896 896 321; Mul 364 364 379; Sub 896 896 364; Mul 364 275 372; Add 896 896 364; Mul 472 472 1004;
  Sub 896 896 472; Mul 472 358 393; Add 896 896 472; Mul 519 519 378; Add 896 896 519; Mul 377 377 896;
  Add 513 513 377; Add 377 291 291; Div 513 513 377; Mul 387 387 513; Sub 402 402 387; Mul 317 317 402;
  Mul 387 201 393; Add 1004 1004 387; Div 388 388 291; Add 1004 1004 388; Add 358 358 358; Mul 358 358 513;
  Sub 1004 1004 358; Mul 363 363 1004; Mul 358 201 482; Add 484 484 358; Div 549 549 291; Add 484 484 549;
  Add 342 342 342; Mul 342 342 513; Sub 484 484 342; Mul 353 353 484; Add 363 363 353; Mul 353 201 445;
  Add 412 412 353; Div 292 292 291; Add 412 412 292; Add 335 335 335; Mul 335 335 513; Sub 412 412 335;
  Mul 337 337 412; Add 363 363 337; Sub 317 317 363; Mul 201 201 372; Add 379 379 201; Div 355 355 291;
  Add 379 379 355; Add 275 275 275; Mul 275 275 513; Sub 379 379 275; Mul 277 277 379; Sub 317 317 277;
  Add 311 311 311; Div 896 896 291; Add 283 283 283; Mul 283 283 513; Sub 896 896 283; Mul 309 309 896;
  Mul 311 311 309; Mul 311 312 311; Add 305 305 305; Mul 303 303 896; Mul 305 305 303; Sub 311 311 305;
  Mul 305 274 311; Add 317 317 305; Mul 301 301 896; Sub 317 317 301; Mul 301 5 896; Mul 308 308 301;
  Add 317 317 308; Mul 317 4 317; Add 190 190 317; Mul 361 361 1004; Mul 350 350 484; Add 361 361 350;
  Mul 329 329 412; Add 361 361 329; Mul 322 322 402; Add 361 361 322; Mul 254 254 379; Add 361 361 254;
  Mul 254 282 311; Add 361 361 254; Mul 307 307 301; Sub 361 361 307; Mul 361 5 361; Sub 190 190 361;
  Out 0 1 190; Mul 190 650 2; Mul 361 616 1049; Sub 190 190 361; Mul 361 656 963; Sub 190 190 361;
  Mul 361 1093 937; Sub 190 190 361; Mul 361 1157 793; Add 190 190 361; Mul 361 143 1297; Add 190 190 361;
  Mul 190 8 190; Mul 656 656 2; Mul 1093 1093 1049; Add 656 656 1093; Mul 650 650 963; Add 656 656 650;
  Mul 616 616 937; Sub 656 656 616; Mul 143 143 793; Sub 656 656 143; Mul 1157 1157 1297; Add 656 656 1157;
  Mul 656 9 656; Sub 190 190 656; Mul 656 109 1265; Mul 1157 111 848; Sub 656 656 1157; Mul 1157 28 1169;
  Sub 656 656 1157; Mul 1157 31 927; Add 656 656 1157; Mul 1157 5 704; Add 656 656 1157; Mul 1157 4 781;
  Add 656 656 1157; Mul 1157 49 1159; Add 656 656 1157; Mul 1157 91 1184; Sub 656 656 1157; Mul 1157 47 653;
  Add 656 656 1157; Mul 1157 94 776; Add 656 656 1157; Mul 656 8 656; Add 190 190 656].
Definition casadi_f0_82 : list instruction := [
  Mul 31 31 1169; Mul 109 109 848; Mul 111 111 1265; Add 109 109 111; Sub 31 31 109; Mul 28 28 927;
  Add 31 31 28; Mul 704 4 704; Add 31 31 704; Mul 781 5 781; Sub 31 31 781; Mul 47 47 1159; Add 31 31 47;
  Mul 94 94 1184; Add 31 31 94; Mul 49 49 653; Sub 31 31 49; Mul 91 91 776; Add 31 31 91; Mul 31 9 31;
  Sub 190 190 31; Mul 31 4 1004; Mul 91 362 31; Add 515 515 607; Mul 607 216 372; Add 515 515 607;
  Mul 607 304 393; Add 515 515 607; Mul 607 3 515; Mul 1004 5 1004; Mul 776 37 1004; Add 607 607 776;
  Mul 776 200 607; Mul 49 357 1004; Add 776 776 49; Mul 49 37 31; Mul 653 198 49; Add 776 776 653;
  Sub 91 91 776; Mul 776 304 482; Add 1073 1073 776; Add 1073 1073 473; Mul 473 288 372; Add 1073 1073 473;
  Mul 473 3 1073; Mul 776 5 484; Mul 653 37 776; Add 473 473 653; Mul 653 354 473; Add 91 91 653;
  Mul 653 346 776; Sub 91 91 653; Mul 484 4 484; Mul 653 37 484; Mul 94 352 653; Sub 91 91 94; Mul 94 351 484;
  Add 91 91 94; Mul 94 304 445; Add 420 420 94; Add 420 420 479; Mul 479 298 372; Add 420 420 479;
  Mul 479 3 420; Mul 94 5 412; Mul 1184 37 94; Add 479 479 1184; Mul 1184 336 479; Sub 91 91 1184;
  Mul 1184 326 94; Sub 91 91 1184; Mul 412 4 412; Mul 1184 37 412; Mul 47 332 1184; Sub 91 91 47;
  Mul 47 330 412; Add 91 91 47; Mul 47 4 402; Mul 1159 37 47; Mul 781 315 1159; Add 91 91 781; Mul 781 316 47;
  Add 91 91 781; Mul 402 5 402; Mul 37 37 402; Mul 781 304 396; Add 395 395 781; Add 395 395 477;
  Mul 477 366 372; Sub 395 395 477; Mul 477 3 395; Sub 37 37 477; Mul 477 318 37; Sub 91 91 477;
  Mul 477 319 402; Sub 91 91 477; Mul 477 5 379; Mul 781 232 477; Sub 91 91 781; Mul 379 4 379; Mul 781 257 379;
  Sub 91 91 781; Mul 262 262 379; Add 91 91 262; Add 262 225 225; Mul 304 304 372; Add 431 431 304;
  Mul 304 263 431; Mul 372 262 304; Mul 269 269 379; Add 372 372 269; Add 269 274 274; Mul 781 260 431;
  Mul 269 269 781; Mul 267 267 379; Sub 269 269 267; Mul 267 5 311; Add 269 269 267; Mul 269 273 269;
  Add 372 372 269; Mul 269 5 301; Mul 267 263 269; Mul 262 262 267; Add 372 372 262; Mul 301 4 301;
  Mul 301 238 301; Mul 262 281 301; Sub 372 372 262; Mul 262 271 372; Add 91 91 262; Mul 262 297 301;
  Sub 91 91 262; Add 282 282 282; Mul 282 282 781; Mul 272 272 477; Mul 272 260 272; Add 282 282 272;
  Mul 311 4 311; Add 282 282 311; Mul 282 273 282; Add 280 280 280; Mul 304 280 304; Mul 311 268 477;
  Mul 311 263 311; Add 304 304 311; Mul 311 225 301; Mul 311 263 311; Sub 304 304 311; Sub 311 896 269].
Definition casadi_f0_83 : list instruction := [
  Mul 272 263 311; Mul 280 280 272; Add 304 304 280; Sub 282 282 304; Mul 304 270 282; Add 91 91 304;
  Sub 311 311 269; Mul 304 9 311; Mul 280 8 301; Sub 304 304 280; Mul 293 293 304; Add 91 91 293; Mul 91 9 91;
  Sub 190 190 91; Mul 362 362 1004; Mul 198 198 607; Sub 362 362 198; Mul 200 200 49; Add 362 362 200;
  Mul 357 357 31; Add 362 362 357; Mul 352 352 473; Sub 362 362 352; Mul 351 351 776; Add 362 362 351;
  Mul 354 354 653; Sub 362 362 354; Mul 346 346 484; Add 362 362 346; Mul 332 332 479; Sub 362 362 332;
  Mul 330 330 94; Add 362 362 330; Mul 336 336 1184; Add 362 362 336; Mul 326 326 412; Add 362 362 326;
  Mul 326 318 1159; Add 362 362 326; Mul 319 319 47; Add 362 362 319; Mul 319 315 37; Add 362 362 319;
  Mul 316 316 402; Add 362 362 316; Mul 257 257 477; Add 362 362 257; Mul 232 232 379; Add 362 362 232;
  Mul 232 270 372; Add 362 362 232; Mul 232 271 282; Sub 362 362 232; Mul 297 297 311; Add 362 362 297;
  Mul 285 285 304; Add 362 362 285; Mul 362 8 362; Add 190 190 362; Out 0 2 190; Mul 190 636 599;
  Mul 362 300 875; Sub 190 190 362; Mul 362 18 838; Add 190 190 362; Mul 362 554 944; Add 190 190 362;
  Mul 362 1071 780; Sub 190 190 362; Mul 362 1256 916; Add 190 190 362; Mul 190 16 190; Mul 636 636 875;
  Mul 300 300 599; Add 636 636 300; Mul 554 554 838; Sub 636 636 554; Mul 18 18 944; Add 636 636 18;
  Mul 1256 1256 780; Add 636 636 1256; Mul 1071 1071 916; Add 636 636 1071; Mul 636 15 636; Sub 190 190 636;
  Mul 636 108 1119; Mul 1071 114 1264; Sub 636 636 1071; Mul 1071 30 1301; Add 636 636 1071; Mul 1071 33 1065;
  Sub 636 636 1071; Mul 1071 10 1047; Add 636 636 1071; Mul 1071 13 590; Sub 636 636 1071; Mul 1071 48 1276;
  Add 636 636 1071; Mul 1071 93 1040; Add 636 636 1071; Mul 1071 51 105; Sub 636 636 1071; Mul 1071 96 649;
  Sub 636 636 1071; Mul 636 16 636; Add 190 190 636; Mul 114 114 1119; Mul 108 108 1264; Add 114 114 108;
  Mul 33 33 1301; Add 114 114 33; Mul 30 30 1065; Add 114 114 30; Mul 13 13 1047; Add 114 114 13; Mul 10 10 590;
  Add 114 114 10; Mul 51 51 1276; Add 114 114 51; Mul 96 96 1040; Add 114 114 96; Mul 48 48 105; Add 114 114 48;
  Mul 93 93 649; Add 114 114 93; Mul 114 15 114; Sub 190 190 114; Mul 114 216 396; Sub 496 496 114;
  Sub 496 496 417; Mul 417 366 393; Add 496 496 417; Add 496 496 515; Mul 515 12 496; Mul 417 9 607;
  Sub 515 515 417; Mul 417 8 49; Sub 515 515 417; Mul 417 192 515; Mul 49 9 49; Mul 114 7 496; Mul 607 8 607;
  Add 114 114 607; Sub 49 49 114; Mul 114 196 49; Sub 417 417 114; Mul 114 9 1004; Mul 607 8 31;
  Add 114 114 607].
Definition casadi_f0_84 : list instruction := [
  Mul 607 356 114; Sub 417 417 607; Mul 607 9 31; Mul 1004 8 1004; Sub 607 607 1004; Mul 1004 360 607;
  Add 417 417 1004; Mul 1004 366 482; Sub 1004 1004 465; Add 1004 1004 398; Mul 398 288 396; Sub 1004 1004 398;
  Add 1004 1004 1073; Mul 1073 7 1004; Mul 398 8 473; Add 1073 1073 398; Mul 398 9 653; Sub 1073 1073 398;
  Mul 398 345 1073; Add 417 417 398; Mul 398 9 776; Mul 465 8 484; Add 398 398 465; Mul 465 348 398;
  Add 417 417 465; Mul 465 9 484; Mul 776 8 776; Sub 465 465 776; Mul 776 344 465; Add 417 417 776;
  Mul 776 9 1184; Mul 93 366 445; Sub 93 93 424; Add 93 93 399; Mul 399 298 396; Sub 93 93 399; Add 93 93 420;
  Mul 420 7 93; Mul 399 8 479; Add 420 420 399; Sub 776 776 420; Mul 420 331 776; Sub 417 417 420;
  Mul 420 12 93; Mul 479 9 479; Sub 420 420 479; Mul 1184 8 1184; Sub 420 420 1184; Mul 1184 334 420;
  Add 417 417 1184; Mul 1184 9 94; Mul 479 8 412; Add 1184 1184 479; Mul 479 325 1184; Sub 417 417 479;
  Mul 412 9 412; Mul 94 8 94; Sub 412 412 94; Mul 94 328 412; Add 417 417 94; Mul 94 8 47; Mul 479 9 402;
  Add 94 94 479; Mul 479 9 477; Add 479 94 479; Mul 399 8 379; Add 479 479 399; Mul 399 217 479;
  Sub 417 417 399; Mul 47 9 47; Mul 402 8 402; Sub 47 47 402; Mul 402 8 477; Sub 402 47 402; Mul 399 9 379;
  Add 402 402 399; Mul 399 237 402; Add 417 417 399; Mul 366 366 396; Sub 366 366 400; Add 366 366 395;
  Mul 395 318 366; Mul 270 270 366; Mul 400 9 1159; Add 270 270 400; Mul 400 8 37; Sub 270 270 400;
  Mul 400 265 47; Add 270 270 400; Mul 270 314 270; Add 395 395 270; Mul 270 9 372; Add 395 395 270;
  Mul 270 8 282; Add 395 395 270; Mul 395 266 395; Add 219 219 219; Sub 431 431 366; Mul 270 246 431;
  Mul 400 219 270; Mul 396 230 402; Mul 396 246 396; Sub 400 400 396; Mul 396 8 304; Mul 396 238 396;
  Add 301 301 396; Mul 396 261 301; Mul 396 246 396; Sub 400 400 396; Mul 304 9 304; Add 269 269 304;
  Sub 304 896 269; Mul 396 246 304; Mul 219 219 396; Add 400 400 219; Sub 395 395 400; Mul 400 250 395;
  Add 417 417 400; Mul 400 315 366; Mul 271 271 366; Mul 1159 8 1159; Add 271 271 1159; Mul 37 9 37;
  Add 271 271 37; Mul 265 265 94; Add 271 271 265; Mul 314 314 271; Add 400 400 314; Mul 372 8 372;
  Add 400 400 372; Mul 282 9 282; Sub 400 400 282; Mul 400 266 400; Add 282 261 261; Mul 270 282 270;
  Mul 258 258 479; Sub 270 270 258; Mul 258 251 301; Sub 270 270 258; Mul 258 246 269; Mul 282 282 258;
  Add 270 270 282; Sub 400 400 270; Mul 270 248 400; Sub 417 417 270; Sub 304 269 304; Mul 270 295 304;
  Add 417 417 270; Mul 270 16 301].
Definition casadi_f0_85 : list instruction := [
  Mul 304 15 304; Add 270 270 304; Mul 286 286 270; Sub 417 417 286; Mul 417 16 417; Add 190 190 417;
  Mul 192 192 49; Mul 196 196 515; Add 192 192 196; Mul 360 360 114; Add 192 192 360; Mul 356 356 607;
  Add 192 192 356; Mul 356 12 1004; Mul 9 9 473; Sub 356 356 9; Mul 8 8 653; Sub 356 356 8; Mul 345 345 356;
  Add 192 192 345; Mul 344 344 398; Add 192 192 344; Mul 348 348 465; Sub 192 192 348; Mul 334 334 776;
  Add 192 192 334; Mul 331 331 420; Add 192 192 331; Mul 328 328 1184; Add 192 192 328; Mul 325 325 412;
  Add 192 192 325; Mul 237 237 479; Sub 192 192 237; Mul 256 256 479; Add 192 192 256; Mul 217 217 402;
  Add 192 192 217; Mul 295 295 301; Add 192 192 295; Mul 295 248 395; Add 192 192 295; Mul 295 250 400;
  Add 192 192 295; Mul 294 294 270; Add 192 192 294; Mul 192 15 192; Sub 190 190 192; Out 0 3 190;
  Mul 190 914 732; Mul 192 587 806; Sub 190 190 192; Mul 192 777 872; Sub 190 190 192; Mul 192 786 804;
  Add 190 190 192; Mul 229 563 229; Add 190 190 229; Mul 190 23 190; Mul 786 786 806; Mul 777 777 732;
  Add 786 786 777; Mul 914 914 872; Add 786 786 914; Mul 563 563 932; Add 786 786 563; Mul 587 587 804;
  Add 786 786 587; Mul 786 22 786; Sub 190 190 786; Mul 786 115 1133; Mul 587 119 1117; Sub 786 786 587;
  Mul 587 32 568; Add 786 786 587; Mul 587 1 140; Sub 786 786 587; Mul 239 17 239; Add 786 786 239;
  Mul 239 50 1099; Add 786 786 239; Mul 239 97 1215; Add 786 786 239; Mul 239 57 775; Sub 786 786 239;
  Mul 239 0 1258; Add 786 786 239; Mul 786 23 786; Add 190 190 786; Mul 119 119 1133; Mul 115 115 1117;
  Add 119 119 115; Mul 568 1 568; Add 119 119 568; Mul 32 32 140; Add 119 119 32; Mul 17 17 1080;
  Add 119 119 17; Mul 57 57 1099; Add 119 119 57; Mul 1215 0 1215; Sub 119 119 1215; Mul 50 50 775;
  Add 119 119 50; Mul 97 97 1258; Add 119 119 97; Mul 119 22 119; Sub 190 190 119; Mul 119 298 482;
  Add 443 443 119; Add 443 443 422; Mul 422 288 445; Add 443 443 422; Add 443 443 1004; Mul 1004 347 443;
  Mul 422 216 445; Add 446 446 422; Add 446 446 222; Mul 222 298 393; Add 446 446 222; Add 446 446 496;
  Mul 496 195 446; Sub 1004 1004 496; Mul 496 19 446; Mul 222 15 49; Sub 496 496 222; Mul 222 16 515;
  Add 496 496 222; Mul 222 16 114; Mul 422 15 607; Add 222 222 422; Mul 422 40 222; Sub 496 496 422;
  Mul 422 197 496; Add 1004 1004 422; Mul 422 16 607; Mul 119 15 114; Sub 422 422 119; Mul 119 184 422;
  Add 1004 1004 119; Mul 119 15 398; Mul 97 16 465; Sub 119 119 97; Mul 97 349 119; Add 1004 1004 97;
  Mul 97 19 443; Mul 1073 15 1073; Add 97 97 1073; Mul 356 16 356].
Definition casadi_f0_86 : list instruction := [
  Add 97 97 356; Mul 356 16 398; Mul 1073 15 465; Add 356 356 1073; Mul 1073 40 356; Sub 97 97 1073;
  Mul 1073 343 97; Add 1004 1004 1073; Mul 484 3 484; Mul 398 7 398; Add 484 484 398; Mul 465 12 465;
  Sub 484 484 465; Mul 465 19 119; Add 484 484 465; Mul 465 14 356; Add 484 484 465; Mul 465 341 484;
  Add 1004 1004 465; Mul 465 16 1184; Mul 398 15 412; Add 465 465 398; Mul 398 16 479; Add 398 465 398;
  Mul 1073 15 402; Add 398 398 1073; Mul 1073 240 398; Add 1004 1004 1073; Mul 1073 241 398; Sub 1004 1004 1073;
  Mul 412 16 412; Mul 1184 15 1184; Sub 412 412 1184; Mul 1184 15 479; Sub 1184 412 1184; Mul 1073 16 402;
  Add 1184 1184 1073; Mul 1073 223 1184; Add 1004 1004 1073; Mul 1073 16 270; Mul 1073 238 1073;
  Sub 1073 1073 301; Mul 301 234 1073; Sub 1004 1004 301; Mul 301 236 1073; Add 1004 1004 301; Add 248 248 248;
  Mul 298 298 445; Add 447 447 298; Add 447 447 93; Mul 93 323 447; Mul 248 248 93; Mul 298 16 776;
  Mul 445 15 420; Add 298 298 445; Mul 333 333 298; Add 248 248 333; Mul 253 253 412; Mul 253 323 253;
  Sub 248 248 253; Mul 253 16 395; Add 248 248 253; Mul 253 15 400; Sub 248 248 253; Mul 248 249 248;
  Add 209 209 209; Add 447 447 431; Mul 431 221 447; Mul 253 209 431; Mul 333 231 1184; Mul 333 221 333;
  Sub 253 253 333; Mul 333 245 1073; Mul 333 221 333; Sub 253 253 333; Mul 270 15 270; Sub 269 269 270;
  Sub 896 896 269; Mul 270 221 896; Mul 209 209 270; Add 253 253 209; Sub 248 248 253; Mul 253 226 248;
  Add 1004 1004 253; Mul 318 318 47; Mul 315 315 94; Add 318 318 315; Mul 279 279 477; Mul 274 274 379;
  Mul 260 260 274; Sub 279 279 260; Add 313 313 313; Mul 313 313 309; Mul 312 312 313; Add 279 279 312;
  Add 310 310 310; Mul 310 310 303; Sub 279 279 310; Mul 273 273 279; Mul 281 281 477; Mul 225 225 379;
  Mul 263 263 225; Add 281 281 263; Add 268 268 268; Mul 267 268 267; Add 281 281 267; Mul 268 268 272;
  Add 281 281 268; Sub 273 273 281; Add 318 318 273; Mul 266 266 318; Mul 318 250 465; Mul 318 323 318;
  Mul 324 324 412; Add 318 318 324; Sub 266 266 318; Add 230 230 230; Mul 396 230 396; Mul 261 261 479;
  Mul 246 246 261; Mul 251 251 402; Add 246 246 251; Sub 396 396 246; Mul 230 230 258; Add 396 396 230;
  Sub 266 266 396; Mul 266 249 266; Add 231 231 231; Mul 270 231 270; Mul 396 245 398; Mul 396 221 396;
  Mul 230 228 1184; Add 396 396 230; Sub 270 270 396; Mul 221 221 269; Mul 231 231 221; Add 270 270 231;
  Sub 266 266 270; Mul 270 175 266; Sub 1004 1004 270; Sub 270 447 269; Mul 231 211 270; Sub 1004 1004 231;
  Mul 231 23 1184; Mul 396 22 270; Sub 231 231 396; Mul 212 212 231; Sub 1004 1004 212; Mul 212 22 1184].
Definition casadi_f0_87 : list instruction := [
  Mul 396 23 270; Add 212 212 396; Mul 396 206 212; Sub 1004 1004 396; Mul 1004 23 1004; Add 190 190 1004;
  Mul 184 184 446; Mul 349 349 443; Sub 184 184 349; Mul 31 3 31; Mul 114 7 114; Add 31 31 114; Mul 607 12 607;
  Sub 31 31 607; Mul 607 14 222; Add 31 31 607; Mul 607 19 422; Sub 31 31 607; Mul 197 197 31; Add 184 184 197;
  Mul 195 195 422; Add 184 184 195; Mul 347 347 119; Add 184 184 347; Mul 347 341 97; Sub 184 184 347;
  Mul 347 343 484; Add 184 184 347; Mul 234 234 398; Sub 184 184 234; Mul 236 236 398; Add 184 184 236;
  Mul 211 211 1184; Add 184 184 211; Mul 240 240 1073; Sub 184 184 240; Mul 241 241 1073; Add 184 184 241;
  Mul 175 175 248; Add 184 184 175; Mul 175 226 266; Add 184 184 175; Mul 206 206 231; Add 184 184 206;
  Mul 223 223 270; Add 184 184 223; Mul 224 224 212; Add 184 184 224; Mul 184 22 184; Sub 190 190 184;
  Out 0 4 190; Mul 190 798 923; Mul 184 306 926; Sub 190 190 184; Mul 184 557 299; Add 190 190 184;
  Mul 184 629 1162; Sub 190 190 184; Mul 184 542 652; Sub 190 190 184; Mul 184 537 922; Add 190 190 184;
  Mul 190 62 190; Mul 798 798 926; Mul 306 306 923; Add 798 798 306; Mul 629 629 299; Add 798 798 629;
  Mul 557 557 1162; Add 798 798 557; Mul 537 537 652; Add 798 798 537; Mul 542 542 922; Add 798 798 542;
  Mul 798 61 798; Sub 190 190 798; Mul 798 123 610; Mul 542 127 1190; Sub 798 798 542; Mul 542 43 1178;
  Add 798 798 542; Mul 542 42 155; Sub 798 798 542; Mul 542 27 71; Add 798 798 542; Mul 542 20 1247;
  Sub 798 798 542; Mul 542 64 81; Add 798 798 542; Mul 542 102 1224; Add 798 798 542; Mul 542 68 79;
  Sub 798 798 542; Mul 542 99 1245; Sub 798 798 542; Mul 798 62 798; Add 190 190 798; Mul 127 127 610;
  Mul 123 123 1190; Add 127 127 123; Mul 42 42 1178; Add 127 127 42; Mul 43 43 155; Add 127 127 43;
  Mul 20 20 71; Add 127 127 20; Mul 27 27 1247; Add 127 127 27; Mul 68 68 81; Add 127 127 68; Mul 99 99 1224;
  Add 127 127 99; Mul 64 64 79; Add 127 127 64; Mul 102 102 1245; Add 127 127 102; Mul 127 61 127;
  Sub 190 190 127; Mul 127 23 446; Mul 102 22 422; Add 127 127 102; Mul 102 191 127; Mul 216 216 482;
  Sub 415 415 216; Add 415 415 423; Mul 393 288 393; Sub 415 415 393; Add 415 415 222; Mul 222 170 415;
  Sub 102 102 222; Mul 496 22 496; Mul 222 21 415; Add 496 496 222; Mul 31 23 31; Add 496 496 31; Mul 31 23 422;
  Mul 222 22 446; Sub 31 31 222; Mul 29 29 31; Sub 496 496 29; Mul 29 176 496; Add 102 102 29; Mul 49 16 49;
  Mul 446 14 446; Sub 49 49 446; Mul 515 15 515; Add 49 49 515; Mul 40 40 422; Add 49 49 40].
Definition casadi_f0_88 : list instruction := [
  Mul 21 21 127; Sub 49 49 21; Mul 26 26 31; Add 49 49 26; Mul 26 193 49; Sub 102 102 26; Mul 26 22 443;
  Mul 31 23 119; Add 26 26 31; Mul 31 22 398; Add 21 26 31; Mul 40 23 1073; Sub 21 21 40; Sub 40 40 31;
  Mul 238 238 40; Add 21 21 238; Mul 238 152 21; Sub 102 102 238; Mul 238 23 231; Mul 40 22 212; Sub 238 238 40;
  Mul 40 157 238; Sub 102 102 40; Mul 40 154 238; Add 102 102 40; Mul 119 22 119; Mul 443 23 443;
  Sub 119 119 443; Mul 443 341 119; Mul 343 343 26; Add 443 443 343; Add 250 250 250; Mul 250 250 93;
  Mul 420 16 420; Mul 776 15 776; Sub 420 420 776; Mul 323 323 420; Add 250 250 323; Mul 327 327 465;
  Sub 250 250 327; Mul 15 15 395; Add 250 250 15; Mul 16 16 400; Add 250 250 16; Mul 249 249 250;
  Add 245 245 245; Mul 431 245 431; Mul 242 242 398; Sub 431 431 242; Mul 228 228 1073; Sub 431 431 228;
  Mul 245 245 221; Add 431 431 245; Sub 249 249 431; Add 443 443 249; Mul 443 227 443; Add 249 220 220;
  Mul 212 23 212; Add 212 212 269; Mul 431 171 212; Mul 431 249 431; Mul 398 23 398; Sub 245 119 398;
  Mul 1073 22 1073; Sub 245 245 1073; Add 398 398 1073; Add 245 245 398; Add 245 245 398; Mul 235 235 245;
  Mul 398 207 21; Add 235 235 398; Sub 431 431 235; Mul 231 22 231; Sub 231 269 231; Mul 235 171 231;
  Mul 249 249 235; Add 431 431 249; Sub 443 443 431; Mul 431 75 443; Sub 102 102 431; Mul 288 288 482;
  Sub 442 442 288; Add 442 442 356; Mul 341 341 442; Mul 244 244 119; Mul 97 23 97; Sub 244 244 97;
  Mul 484 22 484; Add 244 244 484; Mul 226 226 442; Add 244 244 226; Mul 340 340 244; Add 341 341 340;
  Mul 248 22 248; Add 341 341 248; Mul 266 23 266; Add 341 341 266; Mul 227 227 341; Add 210 210 210;
  Sub 447 447 442; Add 447 447 896; Add 447 447 269; Sub 447 447 212; Sub 447 447 231; Mul 269 171 447;
  Mul 269 210 269; Mul 220 220 245; Mul 171 171 220; Mul 207 207 238; Add 171 171 207; Sub 269 269 171;
  Mul 210 210 235; Add 269 269 210; Sub 227 227 269; Mul 269 77 227; Add 102 102 269; Sub 447 231 447;
  Mul 269 215 447; Add 102 102 269; Mul 269 62 245; Mul 447 61 447; Add 269 269 447; Mul 447 156 269;
  Sub 102 102 447; Sub 212 212 231; Mul 231 62 212; Mul 447 158 231; Add 102 102 447; Mul 62 62 102;
  Add 190 190 62; Mul 191 191 415; Mul 170 170 127; Add 191 191 170; Mul 193 193 496; Add 191 191 193;
  Mul 176 176 49; Add 191 191 176; Mul 215 215 245; Add 191 191 215; Mul 157 157 21; Sub 191 191 157;
  Mul 154 154 21; Add 191 191 154; Mul 152 152 238; Add 191 191 152; Mul 77 77 443; Add 191 191 77;
  Mul 75 75 227; Add 191 191 75].
Definition casadi_f0_89 : list instruction := [
  Mul 158 158 269; Add 191 191 158; Mul 213 213 212; Add 191 191 213; Mul 156 156 231; Add 191 191 156;
  Mul 61 61 191; Sub 190 190 61; Out 0 5 190; Mul 5 5 284; Mul 1262 1262 380; Mul 1310 1310 580;
  Add 1262 1262 1310; Mul 697 697 605; Add 1262 1262 697; Mul 819 819 768; Add 1262 1262 819; Mul 765 765 870;
  Add 1262 1262 765; Mul 934 934 766; Add 1262 1262 934; Sub 5 5 1262; Mul 4 4 921; Add 5 5 4; Arg 4 1 0;
  Add 5 5 4; Out 0 6 5; Mul 12 12 203; Mul 7 7 1253; Sub 12 12 7; Mul 19 19 1134; Mul 14 14 1208; Sub 19 19 14;
  Mul 23 23 1099; Add 19 19 23; Mul 22 22 775; Sub 19 19 22; Mul 1182 1 1182; Add 19 19 1182; Mul 1263 0 1263;
  Sub 19 19 1263; Add 12 12 19; Mul 566 1 566; Add 12 12 566; Mul 1280 0 1280; Sub 12 12 1280; Mul 69 69 380;
  Mul 572 572 580; Add 69 69 572; Mul 715 715 605; Add 69 69 715; Mul 907 907 768; Add 69 69 907;
  Mul 939 939 870; Add 69 69 939; Mul 1053 1053 766; Add 69 69 1053; Mul 3 3 1150; Add 69 69 3; Sub 69 12 69;
  Mul 1 1 1147; Add 69 69 1; Mul 0 0 1152; Sub 69 69 0; Arg 0 1 1; Add 69 69 0; Out 0 7 69; Arg 69 1 2;
  Mul 131 131 380; Mul 1308 1308 580; Add 131 131 1308; Mul 1001 1001 605; Add 131 131 1001; Mul 772 772 768;
  Add 131 131 772; Mul 761 761 870; Add 131 131 761; Mul 799 799 766; Add 131 131 799; Add 131 131 12;
  Sub 69 69 131; Out 0 8 69; Mul 968 968 380; Mul 981 981 580; Add 968 968 981; Mul 536 536 605;
  Add 968 968 536; Mul 791 791 768; Add 968 968 791; Mul 919 919 870; Add 968 968 919; Mul 996 996 766;
  Add 968 968 996; Sub 19 19 968; Arg 968 1 3; Add 19 19 968; Out 0 9 19; Arg 19 1 4; Mul 979 979 380;
  Mul 560 560 580; Add 979 979 560; Mul 906 906 605; Add 979 979 906; Mul 647 647 768; Add 979 979 647;
  Mul 670 670 870; Add 979 979 670; Mul 1054 1054 766; Add 979 979 1054; Add 979 979 110; Sub 19 19 979;
  Out 0 10 19; Arg 19 1 5; Mul 35 35 380; Mul 615 615 580; Add 35 35 615; Mul 964 964 605; Add 35 35 964;
  Mul 762 762 768; Add 35 35 762; Mul 675 675 870; Add 35 35 675; Mul 600 600 766; Add 35 35 600; Add 35 35 522;
  Sub 19 19 35; Out 0 11 19; Out 0 12 766; Out 0 13 870; Out 0 14 768; Out 0 15 605; Out 0 16 580;
  Out 0 17 380].
Definition casadi_f0 : casadi_function := {| f_locals := casadi_f0_locals; f_code :=
  casadi_f0_1 ++ casadi_f0_2 ++ casadi_f0_3 ++ casadi_f0_4 ++ casadi_f0_5 ++ casadi_f0_6 ++ casadi_f0_7 ++
  casadi_f0_8 ++ casadi_f0_9 ++ casadi_f0_10 ++ casadi_f0_11 ++ casadi_f0_12 ++ casadi_f0_13 ++ casadi_f0_14 ++
  casadi_f0_15 ++ casadi_f0_16 ++ casadi_f0_17 ++ casadi_f0_18 ++ casadi_f0_19 ++ casadi_f0_20 ++
  casadi_f0_21 ++ casadi_f0_22 ++ casadi_f0_23 ++ casadi_f0_24 ++ casadi_f0_25 ++ casadi_f0_26 ++
  casadi_f0_27 ++ casadi_f0_28 ++ casadi_f0_29 ++ casadi_f0_30 ++ casadi_f0_31 ++ casadi_f0_32 ++
  casadi_f0_33 ++ casadi_f0_34 ++ casadi_f0_35 ++ casadi_f0_36 ++ casadi_f0_37 ++ casadi_f0_38 ++
  casadi_f0_39 ++ casadi_f0_40 ++ casadi_f0_41 ++ casadi_f0_42 ++ casadi_f0_43 ++ casadi_f0_44 ++
  casadi_f0_45 ++ casadi_f0_46 ++ casadi_f0_47 ++ casadi_f0_48 ++ casadi_f0_49 ++ casadi_f0_50 ++
  casadi_f0_51 ++ casadi_f0_52 ++ casadi_f0_53 ++ casadi_f0_54 ++ casadi_f0_55 ++ casadi_f0_56 ++
  casadi_f0_57 ++ casadi_f0_58 ++ casadi_f0_59 ++ casadi_f0_60 ++ casadi_f0_61 ++ casadi_f0_62 ++
  casadi_f0_63 ++ casadi_f0_64 ++ casadi_f0_65 ++ casadi_f0_66 ++ casadi_f0_67 ++ casadi_f0_68 ++
  casadi_f0_69 ++ casadi_f0_70 ++ casadi_f0_71 ++ casadi_f0_72 ++ casadi_f0_73 ++ casadi_f0_74 ++
  casadi_f0_75 ++ casadi_f0_76 ++ casadi_f0_77 ++ casadi_f0_78 ++ casadi_f0_79 ++ casadi_f0_80 ++
  casadi_f0_81 ++ casadi_f0_82 ++ casadi_f0_83 ++ casadi_f0_84 ++ casadi_f0_85 ++ casadi_f0_86 ++
  casadi_f0_87 ++ casadi_f0_88 ++ casadi_f0_89 |}.
Definition willow_mpc_expl_vde_adj : casadi_function * casadi_interface := (casadi_f0, {|
  f_name_in := ["i0"; "i1"; "i2"; "i3"]; f_name_out := ["o0"]; f_sparsity_in := [casadi_s0; casadi_s0; casadi_s1; casadi_s2]; f_sparsity_out := [casadi_s3];
  f_n_in := 4; f_n_out := 1; f_work := (4, 1, 0, 0)%nat |}).
End MpcAdjoint.
Export MpcAdjoint.
