(* ===== verification/ArmModel.v ===== *)
(** * The kinematics and dynamics of the arms

    include/florid/Model.hpp and the structs at the end of the two files of
    include/florid/traits/: what each computes by calling a generated function,
    in any arithmetic. *)

From Stdlib Require Import SpecFloat.
From stdpp Require Import strings.
From S2P Require Import Prelude Arith Casadi WillowTraits PantheraTraits.

(** ** The traits of an arm *)

Definition kDOF : nat := 6.
Definition kHasMass : bool := true.
Definition kHasCoriolis : bool := true.
Definition collision_lower : list Z := [20; 20; 20; 20; 10; 10].
Definition collision_upper : list Z := [20; 20; 20; 20; 10; 10].
Definition cartesian_impedance : list Z := [600; 600; 600; 30; 30; 30].
Definition watchdog_timeout_ms : Z := 500.

(** The two arms. *)
Inductive arm_model := WillowTraits | PantheraTraits.
Definition generated_of (m : arm_model) : generated :=
  match m with WillowTraits => willow | PantheraTraits => panthera end.

Section traits.
Context {F : Type} {O : Ops F} (m : arm_model).

(** A call of a generated function that has one result: what is left in it. *)
Definition one_result (f : casadi_function * casadi_interface) (args : list (option (list F))) (r : option (list F))
    : option (option (list F)) :=
  match call_casadi (f_code f.1) args [r] with
  | Some [r'] => Some r'
  | _ => None
  end.

Definition fk (q T_out : option (list F)) : option (option (list F)) :=
  one_result (g_fk (generated_of m)) [q] T_out.
Definition zeroJacobian (q J_out : option (list F)) : option (option (list F)) :=
  one_result (g_zero_jacobian (generated_of m)) [q] J_out.
Definition bodyJacobian (q J_out : option (list F)) : option (option (list F)) :=
  one_result (g_body_jacobian (generated_of m)) [q] J_out.
(** A frame other than 1 to 6 is ignored. *)
Definition pose (frame : Z) (q T_out : option (list F)) : option (option (list F)) :=
  match (if (1 <=? frame) && (frame <=? 6) then g_pose (generated_of m) !! Z.to_nat (frame - 1) else None) with
  | Some f => one_result f [q] T_out
  | None => Some T_out
  end.
Definition gravity (q g_vec g_out : option (list F)) : option (option (list F)) :=
  one_result (g_gravity (generated_of m)) [q; g_vec] g_out.
Definition mass (q M_out : option (list F)) : option (option (list F)) :=
  one_result (g_mass (generated_of m)) [q] M_out.
Definition coriolis (q dq C_out : option (list F)) : option (option (list F)) :=
  one_result (g_coriolis (generated_of m)) [q; dq] C_out.
End traits.

(** ** [Model] *)

(** [Frame]: [kFlange] and [kEndEffector] are [kJoint6]. *)
Inductive Frame := kJoint1 | kJoint2 | kJoint3 | kJoint4 | kJoint5 | kJoint6.
Definition kFlange : Frame := kJoint6.
Definition kEndEffector : Frame := kJoint6.
Definition frame_number (f : Frame) : Z :=
  match f with kJoint1 => 1 | kJoint2 => 2 | kJoint3 => 3 | kJoint4 => 4 | kJoint5 => 5 | kJoint6 => 6 end.

Section model.
Context {F : Type} {O : Ops F} (Traits : arm_model).
Definition forwardKinematics (q T_out : option (list F)) := fk Traits q T_out.
Definition model_pose (frame : Frame) (q T_out : option (list F)) := pose Traits (frame_number frame) q T_out.
Definition model_zeroJacobian (q J_out : option (list F)) := zeroJacobian Traits q J_out.
Definition model_bodyJacobian (q J_out : option (list F)) := bodyJacobian Traits q J_out.
Definition model_mass (q M_out : option (list F)) := mass Traits q M_out.
Definition model_coriolis (q dq C_out : option (list F)) := coriolis Traits q dq C_out.
Definition model_gravity (q g_vec g_out : option (list F)) := gravity Traits q g_vec g_out.
End model.

(** The reach of the arms with all joints at 0, in the program's arithmetic. *)
Definition zero_angles : list double := replicate 6 (S754_zero false).
Definition trivial_sin (_ : double) : double := S754_zero false.
Definition trivial_cos (_ : double) : double := widen (float_literal 1 0).
