(* ===== verification/Kinematics.v ===== *)
(** * The kinematics of the arms are those of their joints

    The specification of an arm: six joints, each a rotation about an axis of the
    frame before it and an offset.  The generated forward kinematics are the
    product of the joints' matrices, whose frames are rigid; the Jacobians are
    the derivatives of the forward kinematics.  All of it in exact arithmetic on
    the constants of the program. *)

From Stdlib Require Import Reals Lra.
From stdpp Require Import strings.
From S2P Require Import Prelude Arith Casadi Polynomials Symbolic Analyses WillowTraits PantheraTraits ArmModel.

(** ** Joints *)

Inductive axis := AxisX | AxisY | AxisZ.
Record joint := {
  j_axis : axis;
  j_reversed : bool;
  j_offset : list (list (Z * nat))  (* x, y and z, each a sum of literals *)
}.

Definition joints_of (m : arm_model) : list joint :=
  match m with
  | WillowTraits => [
      {| j_axis := AxisZ; j_reversed := false; j_offset := [[]; []; [(96750000000000003, 18%nat)]] |};
      {| j_axis := AxisY; j_reversed := false; j_offset := [[]; []; [(14324999999999999, 17%nat); (-96750000000000003, 18%nat)]] |};
      {| j_axis := AxisY; j_reversed := true; j_offset := [[(-28499999999999998, 17%nat)]; [(-26250000000000002, 19%nat)]; []] |};
      {| j_axis := AxisY; j_reversed := false; j_offset := [[(24818000000000001, 17%nat)]; []; [(528, 4%nat)]] |};
      {| j_axis := AxisZ; j_reversed := true; j_offset := [[(62758999999999995, 18%nat)]; [(26250000000000002, 19%nat)]; [(41000000000000002, 18%nat)]] |};
      {| j_axis := AxisX; j_reversed := true; j_offset := [[(18848000000000001, 17%nat)]; [(-78693, 9%nat)]; [(-34077999999999997, 18%nat)]] |}]
  | PantheraTraits => [
      {| j_axis := AxisZ; j_reversed := false; j_offset := [[]; []; [(51999999999999998, 18%nat)]] |};
      {| j_axis := AxisY; j_reversed := false; j_offset := [[(18199, 6%nat)]; []; [(10200000000000001, 17%nat); (-51999999999999998, 18%nat)]] |};
      {| j_axis := AxisY; j_reversed := true; j_offset := [[(-26000000000000001, 17%nat)]; []; []] |};
      {| j_axis := AxisY; j_reversed := true; j_offset := [[(23000000000000001, 17%nat)]; []; [(59999999999999998, 18%nat)]] |};
      {| j_axis := AxisZ; j_reversed := true; j_offset := [[(70000000000000007, 18%nat)]; []; [(-43609, 7%nat)]] |};
      {| j_axis := AxisX; j_reversed := false; j_offset := [[(15440000000000001, 17%nat)]; []; []] |}]
  end.

(** ** Matrices *)

Definition matrix := nat -> nat -> R.

(** The rotation about an axis with the cosine [c] and the sine [s]. *)
Definition rotation_about {A} (zero one : A) (neg : A -> A) (a : axis) (c s : A) (i k : nat) : A :=
  match a, i, k with
  | AxisX, 0, 0 => one | AxisX, 1, 1 => c | AxisX, 1, 2 => neg s | AxisX, 2, 1 => s | AxisX, 2, 2 => c
  | AxisY, 1, 1 => one | AxisY, 0, 0 => c | AxisY, 0, 2 => s | AxisY, 2, 0 => neg s | AxisY, 2, 2 => c
  | AxisZ, 2, 2 => one | AxisZ, 0, 0 => c | AxisZ, 0, 1 => neg s | AxisZ, 1, 0 => s | AxisZ, 1, 1 => c
  | _, _, _ => zero
  end%nat.

(** The length given by a sum of literals. *)
Definition literals (l : list (Z * nat)) : R := foldr (fun '(n, k) x => (real_of (float_literal n k) + x)%R) 0%R l.

(** A joint at the angle [x], as a homogeneous transform. *)
Definition joint_matrix (j : joint) (x : R) : matrix := fun i k =>
  if (i <? 3)%nat then
    if (k <? 3)%nat
    then rotation_about 0%R 1%R Ropp (j_axis j) (cos x) (if j_reversed j then (- sin x)%R else sin x) i k
    else literals (nth i (j_offset j) [])
  else if (k <? 3)%nat then 0%R else 1%R.

Definition mat_mul (A B : matrix) : matrix := fun i k =>
  (A i 0%nat * B 0%nat k + A i 1%nat * B 1%nat k + A i 2%nat * B 2%nat k + A i 3%nat * B 3%nat k)%R.
Definition identity : matrix := fun i k => if (i =? k)%nat then 1%R else 0%R.

(** The transform of the frame after the joints [js] at the angles [q]. *)
Fixpoint chain (js : list joint) (q : list R) : matrix :=
  match js, q with
  | j :: js, x :: q => mat_mul (joint_matrix j x) (chain js q)
  | _, _ => identity
  end.

(** The program's column-major arrays of 16. *)
Definition is_matrix (T : list R) (M : matrix) : Prop :=
  length T = 16%nat /\ forall i k, (i < 4)%nat -> (k < 4)%nat -> nth (4 * k + i) T 0%R = M i k.

(** ** The same on polynomials *)

Definition p_matrix := nat -> nat -> poly.
Definition p_literals (l : list (Z * nat)) : poly :=
  foldr (fun '(n, k) x => p_add (p_const (dyad_of (float_literal n k))) x) p_zero l.
Definition p_joint (j : joint) (x : nat) : p_matrix := fun i k =>
  if (i <? 3)%nat then
    if (k <? 3)%nat
    then rotation_about p_zero p_one p_opp (j_axis j) (p_cos x) (if j_reversed j then p_opp (p_sin x) else p_sin x) i k
    else p_literals (nth i (j_offset j) [])
  else if (k <? 3)%nat then p_zero else p_one.
Definition p_mat_mul (A B : p_matrix) : p_matrix := fun i k =>
  p_add (p_add (p_add (p_mul (A i 0%nat) (B 0%nat k)) (p_mul (A i 1%nat) (B 1%nat k))) (p_mul (A i 2%nat) (B 2%nat k)))
    (p_mul (A i 3%nat) (B 3%nat k)).
(** A matrix that is computed once. *)
Definition tabulate (M : p_matrix) : list poly := flat_map (fun k => map (fun i => M i k) (seq 0 4)) (seq 0 4).
Definition tabulated (l : list poly) : p_matrix := fun i k => nth (4 * k + i) l p_zero.
Fixpoint p_chain (js : list joint) (x : nat) : list poly :=
  match js with
  | j :: js => let rest := p_chain js (S x) in let first := tabulate (p_joint j x) in
      tabulate (p_mat_mul (tabulated first) (tabulated rest))
  | [] => tabulate (fun i k => if (i =? k)%nat then p_one else p_zero)
  end.

Lemma tabulated_tabulate M i k : (i < 4)%nat -> (k < 4)%nat -> tabulated (tabulate M) i k = M i k.
Proof. intros Hi Hk. by destruct i as [|[|[|[|]]]], k as [|[|[|[|]]]]; try lia. Qed.

Lemma p_literals_val l a : p_val l (p_literals a) = literals a.
Proof. induction a as [|[n k] a IH]; cbn; [apply p_zero_val|]. rewrite p_add_val, p_const_val, dyad_of_val. by f_equal. Qed.

Lemma p_joint_val j q v x y i k : q !! x = Some y -> p_val (vars q v) (p_joint j x i k) = joint_matrix j y i k.
Proof.
  intros Hx. unfold p_joint, joint_matrix. destruct (i <? 3)%nat, (k <? 3)%nat;
    [|apply p_literals_val|apply p_zero_val|apply p_one_val].
  unfold rotation_about. destruct (j_axis j), i as [|[|[|i]]], k as [|[|[|k]]], (j_reversed j);
    rewrite ?p_opp_val, ?p_opp_val, ?(vars_cos _ _ _ _ Hx), ?(vars_sin _ _ _ _ Hx), ?p_zero_val, ?p_one_val; done.
Qed.

Lemma p_chain_val js q v i k : forall x, (x + length js <= length q)%nat -> (i < 4)%nat -> (k < 4)%nat ->
  p_val (vars q v) (tabulated (p_chain js x) i k) = chain js (drop x q) i k.
Proof.
  revert i k. induction js as [|j js IH]; intros i k x Hx Hi Hk; cbn in Hx.
  - cbn [p_chain chain]. rewrite tabulated_tabulate by done. unfold identity.
    destruct (i =? k)%nat; [apply p_one_val|apply p_zero_val].
  - destruct (lookup_lt_is_Some_2 q x) as [y Hy]; [lia|]. rewrite (drop_S q y x Hy). cbn [chain p_chain].
    rewrite tabulated_tabulate by done. unfold p_mat_mul, mat_mul.
    rewrite !p_add_val, !p_mul_val, !tabulated_tabulate, !(p_joint_val _ _ _ _ _ _ _ Hy), !IH by lia. done.
Qed.

(** ** Checks *)

(** The function computes the chain of the joints. *)
Definition computes_chain (f : casadi_function) (js : list joint) : bool :=
  match symbolic_call float_literal 6 f [symbolic_angles] 16 with
  | Some l => let c := p_chain js 0 in (length l =? 16)%nat &&
      all_below 4 (fun i => all_below 4 (fun k => p_is_zero 6 (p_sub (entry l (4 * k + i)).1 (tabulated c i k))))
  | None => false
  end.

Lemma entry_values l q v i :
  nth i (map (fun pd => p_val (vars q v) pd.1) l) 0%R = p_val (vars q v) (entry l i).1.
Proof.
  unfold entry. revert i. induction l as [|pd l IH]; intros [|i]; cbn; [by rewrite p_zero_val..|done|apply IH].
Qed.

Lemma computes_chain_sound f js q out : computes_chain f js = true -> length q = 6%nat -> length out = 16%nat ->
  (length js <= 6)%nat ->
  exists T, call_casadi (f_code f) [Some q] [Some out] = Some [Some T] /\ is_matrix T (chain js q).
Proof.
  intros Hc Hq Hout Hjs. unfold computes_chain in Hc. destruct (symbolic_call float_literal _ _ _ _) as [l|] eqn:Hs; [|done].
  apply andb_true_iff in Hc as [Hl%Nat.eqb_eq Hc].
  exists (map (fun pd => p_val (vars q []) pd.1) l). split; [exact (call_values float_literal f [] 16 l q [] out Hs Hq Hout)|].
  split; [by rewrite length_map|]. intros i k Hi Hk. rewrite entry_values.
  pose proof (all_below_spec _ _ k (all_below_spec _ _ i Hc Hi) Hk) as Hz.
  rewrite (p_equal6 q [] _ _ Hq Hz). by rewrite p_chain_val by lia.
Qed.

(** ** The forward kinematics *)

Definition joints_before (m : arm_model) (f : Frame) : list joint := take (Z.to_nat (frame_number f)) (joints_of m).

(** The generated function of a frame. *)
Definition frame_function (m : arm_model) (f : Frame) : casadi_function * casadi_interface :=
  nth (Z.to_nat (frame_number f - 1)) (g_pose (generated_of m)) (g_fk (generated_of m)).
Lemma model_pose_call {F} {O : Ops F} m f (q T_out : option (list F)) :
  model_pose m f q T_out = one_result (frame_function m f) [q] T_out.
Proof. by destruct m, f. Qed.
Lemma one_result_call {F} {O : Ops F} f args (r r' : option (list F)) :
  call_casadi (f_code f.1) args [r] = Some [r'] -> one_result f args r = Some r'.
Proof. unfold one_result. by intros ->. Qed.

Lemma frames_compute m f : computes_chain (frame_function m f).1 (joints_before m f) = true.
Proof. destruct m, f; by vm_compute. Qed.
Lemma fk_computes m : computes_chain (g_fk (generated_of m)).1 (joints_of m) = true.
Proof. destruct m; by vm_compute. Qed.
Lemma joints_number m : length (joints_of m) = 6%nat.
Proof. by destruct m. Qed.

(** C4: every frame is where its joints put it.  For both arms, every frame and every
    six angles, the pose that the program computes is the product of the
    transforms of the joints up to that frame; and the forward kinematics are the
    pose of the last frame, the end effector. *)
Theorem pose_is_joint_chain m frame q T_out :
  length q = 6%nat -> length T_out = 16%nat ->
  (exists T, model_pose m frame (Some q) (Some T_out) = Some (Some T) /\ is_matrix T (chain (joints_before m frame) q)) /\
  (exists T, forwardKinematics m (Some q) (Some T_out) = Some (Some T) /\ is_matrix T (chain (joints_of m) q)).
Proof.
  intros Hq HT. split.
  - destruct (computes_chain_sound _ _ q T_out (frames_compute m frame) Hq HT) as (T & Hc & HM).
    { unfold joints_before. rewrite length_take, joints_number. lia. }
    exists T. split; [|done]. rewrite model_pose_call. by apply one_result_call.
  - destruct (computes_chain_sound _ _ q T_out (fk_computes m) Hq HT) as (T & Hc & HM); [by rewrite joints_number|].
    exists T. split; [|done]. by apply one_result_call.
Qed.

(** ** Frames are rigid *)

Definition vector := nat -> R.
Definition dot (u w : vector) : R := (u 0%nat * w 0%nat + u 1%nat * w 1%nat + u 2%nat * w 2%nat)%R.
Definition cross (u w : vector) : vector := fun i =>
  match i with
  | 0 => u 1%nat * w 2%nat - u 2%nat * w 1%nat
  | 1 => u 2%nat * w 0%nat - u 0%nat * w 2%nat
  | _ => u 0%nat * w 1%nat - u 1%nat * w 0%nat
  end%R%nat.
(** The rotation of a transform, applied to a vector. *)
Definition rotate (M : matrix) (u : vector) : vector := fun i => (M i 0%nat * u 0%nat + M i 1%nat * u 1%nat + M i 2%nat * u 2%nat)%R.

(** A rigid motion: lengths, angles and orientation are kept. *)
Definition rigid (M : matrix) : Prop :=
  (forall k, (k < 3)%nat -> M 3%nat k = 0%R) /\ M 3%nat 3%nat = 1%R /\
  (forall u w, dot (rotate M u) (rotate M w) = dot u w) /\
  (forall u w i, (i < 3)%nat -> rotate M (cross u w) i = cross (rotate M u) (rotate M w) i).

Lemma rigid_ext M M' : (forall i k, (i < 4)%nat -> (k < 4)%nat -> M i k = M' i k) -> rigid M -> rigid M'.
Proof.
  intros He (H3 & H33 & Hd & Hc). assert (forall u i, (i < 3)%nat -> rotate M u i = rotate M' u i) as Hr
    by (intros u i Hi; unfold rotate; by rewrite !He by lia).
  split; [intros k Hk; rewrite <- He by lia; by apply H3|]. split; [by rewrite <- He by lia|]. split.
  - intros u w. rewrite <- (Hd u w). unfold dot. by rewrite !Hr by lia.
  - intros u w i Hi. rewrite <- (Hr (cross u w) i Hi), (Hc u w i Hi). unfold cross. destruct i as [|[|[|]]]; rewrite ?Hr by lia; done.
Qed.

Lemma rigid_identity : rigid identity.
Proof.
  split; [intros [|[|[|]]]; try lia; done|]. split; [done|]. split; intros; unfold identity, rotate, dot, cross; cbn.
  - ring.
  - destruct i as [|[|[|]]]; cbn; try lia; ring.
Qed.

Lemma rotate_mul A B u i : rigid B -> rotate (mat_mul A B) u i = rotate A (rotate B u) i.
Proof. intros (H3 & _). unfold rotate, mat_mul. rewrite !(H3 _) by lia. ring. Qed.

Lemma dot_ext u u' w w' : (forall i, u i = u' i) -> (forall i, w i = w' i) -> dot u w = dot u' w'.
Proof. intros Hu Hw. unfold dot. by rewrite !Hu, !Hw. Qed.
Lemma cross_ext u u' w w' i : (forall i, u i = u' i) -> (forall i, w i = w' i) -> cross u w i = cross u' w' i.
Proof. intros Hu Hw. unfold cross. by rewrite !Hu, !Hw. Qed.
Lemma rotate_ext A u u' i : (forall i, (i < 3)%nat -> u i = u' i) -> rotate A u i = rotate A u' i.
Proof. intros Hu. unfold rotate. by rewrite !Hu by lia. Qed.

Lemma rigid_mul A B : rigid A -> rigid B -> rigid (mat_mul A B).
Proof.
  intros HA HB. pose proof (fun u i => rotate_mul A B u i HB) as Hm.
  destruct HA as (A3 & A33 & Adot & Across), HB as (B3 & B33 & Bdot & Bcross). split; [|split; [|split]].
  - intros k Hk. unfold mat_mul. rewrite !A3, A33, (B3 k Hk) by lia. ring.
  - unfold mat_mul. rewrite !A3, A33, B33 by lia. ring.
  - intros u w. rewrite (dot_ext _ (rotate A (rotate B u)) _ (rotate A (rotate B w))) by done. by rewrite Adot, Bdot.
  - intros u w i Hi. rewrite Hm, (rotate_ext A _ (cross (rotate B u) (rotate B w))) by (intros; by apply Bcross).
    rewrite (cross_ext (rotate (mat_mul A B) u) (rotate A (rotate B u)) _ (rotate A (rotate B w))) by done. by apply Across.
Qed.

Lemma rigid_joint j x : rigid (joint_matrix j x).
Proof.
  split; [intros [|[|[|]]]; try lia; done|]. split; [done|].
  assert (sin x * sin x = 1 - cos x * cos x)%R as Hx by (pose proof (sin2_cos2 x) as Hx; unfold Rsqr in Hx; lra).
  unfold rotate, joint_matrix, dot, cross, rotation_about.
  split; intros; [|destruct i as [|[|[|]]]; try lia]; destruct (j_axis j), (j_reversed j); cbn; ring [Hx].
Qed.

Lemma rigid_chain js q : rigid (chain js q).
Proof.
  revert q. induction js as [|j js IH]; intros [|x q]; try apply rigid_identity. apply rigid_mul; [apply rigid_joint|apply IH].
Qed.

(** C27: every frame of an arm, wherever its joints are, is a rigid motion of the base:
    the array that the program leaves is a homogeneous transform whose rotation
    keeps lengths and angles (scalar products) and orientation (vector products).
    With it, the frames of two joints are always as far from each other. *)
Theorem frames_are_rigid m frame q T_out :
  length q = 6%nat -> length T_out = 16%nat ->
  exists T, model_pose m frame (Some q) (Some T_out) = Some (Some T) /\
    length T = 16%nat /\ rigid (fun i k => nth (4 * k + i) T 0%R).
Proof.
  intros Hq HT. destruct (computes_chain_sound _ _ q T_out (frames_compute m frame) Hq HT) as (T & Hc & Hlen & HM).
  { unfold joints_before. rewrite length_take, joints_number. lia. }
  exists T. split; [rewrite model_pose_call; by apply one_result_call|]. split; [done|].
  apply (rigid_ext (chain (joints_before m frame) q)); [|apply rigid_chain]. intros i k Hi Hk. symmetry. by apply HM.
Qed.

(** ** The Jacobians *)

Definition p_cross (u w : nat -> poly) (i : nat) : poly :=
  let minor a b := p_sub (p_mul (u a) (w b)) (p_mul (u b) (w a)) in
  match i with 0 => minor 1 2 | 1 => minor 2 0 | _ => minor 0 1 end%nat.
Lemma p_cross_val l u w i : p_val l (p_cross u w i) = cross (fun n => p_val l (u n)) (fun n => p_val l (w n)) i.
Proof. destruct i as [|[|[|i]]]; cbn; rewrite p_sub_val, !p_mul_val; done. Qed.

(** Column [j] of the Jacobian against the derivative of the forward kinematics. *)
Definition jacobian_checked (m : arm_model) (j : nat) : bool :=
  match symbolic_call float_literal j (g_fk (generated_of m)).1 [symbolic_angles] 16,
        symbolic_call float_literal 6 (g_zero_jacobian (generated_of m)).1 [symbolic_angles] 36 with
  | Some T, Some J =>
      (length T =? 16)%nat && (length J =? 36)%nat &&
      all_below 3 (fun i => p_is_zero 6 (p_sub (entry T (12 + i)).2 (entry J (6 * i + j)).1)) &&
      all_below 3 (fun i => all_below 3 (fun k => p_is_zero 6 (p_sub (entry T (4 * k + i)).2
        (p_cross (fun n => (entry J (6 * (3 + n) + j)).1) (fun n => (entry T (4 * k + n)).1) i))))
  | _, _ => false
  end.

Lemma jacobians_checked m j : (j < 6)%nat -> jacobian_checked m j = true.
Proof. intros Hj. destruct m, j as [|[|[|[|[|[|]]]]]]; try lia; by vm_compute. Qed.

Lemma entry_derives l (outs : list (R -> R)) x lv i :
  Forall2 (fun pd g => g x = p_val lv pd.1 /\ derivable_pt_lim g x (p_val lv pd.2)) l outs -> (i < length l)%nat ->
  nth i (map (fun g => g x) outs) 0%R = p_val lv (entry l i).1 /\
  derivable_pt_lim (fun t => nth i (map (fun g => g t) outs) 0%R) x (p_val lv (entry l i).2).
Proof.
  intros Hrel. revert i. induction Hrel as [|pd g l outs [Hv Hd] _ IH]; intros [|i] Hi; cbn in *; try lia; [done|].
  apply IH. lia.
Qed.

(** C14: the Jacobian is the derivative of the forward kinematics.  For each joint, the
    first three rows of its column are the velocity of the end effector's
    position, and the last three the angular velocity of its orientation, per
    velocity of the joint: the rate of each axis of the end effector is the vector
    product of the angular velocity and the axis.  All in the frame of the base. *)
Theorem zero_jacobian_is_derivative m q j T_out J_out :
  length q = 6%nat -> length T_out = 16%nat -> length J_out = 36%nat -> (j < 6)%nat ->
  exists (T : R -> list R) J,
    (forall t, forwardKinematics m (Some (<[j := t]> q)) (Some T_out) = Some (Some (T t))) /\
    model_zeroJacobian m (Some q) (Some J_out) = Some (Some J) /\
    let x := nth j q 0%R in
    let angular n := nth (6 * (3 + n) + j) J 0%R in
    (forall i, (i < 3)%nat -> derivable_pt_lim (fun t => nth (12 + i) (T t) 0%R) x (nth (6 * i + j) J 0%R)) /\
    (forall i k, (i < 3)%nat -> (k < 3)%nat ->
       derivable_pt_lim (fun t => nth (4 * k + i) (T t) 0%R) x (cross angular (fun n => nth (4 * k + n) (T x) 0%R) i)).
Proof.
  intros Hq HT HJ Hj. pose proof (jacobians_checked m j Hj) as Hc. unfold jacobian_checked in Hc.
  destruct (symbolic_call float_literal j _ _ _) as [T|] eqn:HsT; [|done]. destruct (symbolic_call float_literal 6 _ _ _) as [J|] eqn:HsJ; [|done].
  rewrite !andb_true_iff, !Nat.eqb_eq in Hc. destruct Hc as [[[HlT HlJ] Hlin] Hang].
  assert (<[j := nth j q 0%R]> q = q) as Hx.
  { destruct (lookup_lt_is_Some_2 q j) as [x Hx]; [lia|]. rewrite (nth_lookup_Some q j 0%R x Hx). by apply list_insert_id. }
  destruct (call_derivatives float_literal j _ [] 16 T q [] T_out (nth j q 0%R) HsT Hq HT ltac:(constructor) Hx) as (outs & Hcall & Hrel).
  exists (fun t => map (fun g => g t) outs), (map (fun pd => p_val (vars q []) pd.1) J).
  split; [intros t; by apply one_result_call|].
  split; [apply one_result_call; exact (call_values float_literal _ [] 36 J q [] J_out HsJ Hq HJ)|]. cbv zeta.
  split.
  - intros i Hi. rewrite entry_values, <- (p_equal6 q [] _ _ Hq (all_below_spec _ _ i Hlin Hi)).
    apply (entry_derives _ _ _ _ _ Hrel). lia.
  - intros i k Hi Hk. pose proof (p_equal6 q [] _ _ Hq (all_below_spec _ _ k (all_below_spec _ _ i Hang Hi) Hk)) as He.
    rewrite p_cross_val in He.
    replace (cross _ _ _) with (p_val (vars q []) (entry T (4 * k + i)).2); [apply (entry_derives _ _ _ _ _ Hrel); lia|].
    assert (forall n, (n < 16)%nat ->
      nth n (map (fun g => g (nth j q 0%R)) outs) 0%R = p_val (vars q []) (entry T n).1) as Hv
      by (intros n Hn; apply (entry_derives _ _ _ _ _ Hrel); lia).
    rewrite He. unfold cross. destruct i as [|[|[|]]]; try lia; rewrite !entry_values, !Hv by lia; done.
Qed.

(** The body Jacobian against the other, through the forward kinematics. *)
Definition p_rotate (T : list (poly * poly)) (u : nat -> poly) (i : nat) : poly :=
  p_add (p_add (p_mul (entry T i).1 (u 0%nat)) (p_mul (entry T (4 + i)).1 (u 1%nat))) (p_mul (entry T (8 + i)).1 (u 2%nat)).
Definition body_checked (m : arm_model) : bool :=
  match symbolic_call float_literal 6 (g_fk (generated_of m)).1 [symbolic_angles] 16,
        symbolic_call float_literal 6 (g_zero_jacobian (generated_of m)).1 [symbolic_angles] 36,
        symbolic_call float_literal 6 (g_body_jacobian (generated_of m)).1 [symbolic_angles] 36 with
  | Some T, Some J, Some B =>
      all_below 2 (fun h => all_below 6 (fun j => all_below 3 (fun i => p_is_zero 6 (p_sub
        (entry J (6 * (3 * h + i) + j)).1 (p_rotate T (fun n => (entry B (6 * (3 * h + n) + j)).1) i)))))
  | _, _, _ => false
  end.
Lemma body_is_checked m : body_checked m = true.
Proof. destruct m; by vm_compute. Qed.

(** The body Jacobian is the Jacobian in the frame of the end effector: the
    rotation of the forward kinematics takes the velocity and the angular velocity
    of each of its columns to those of the Jacobian in the frame of the base. *)
Theorem body_jacobian_is_rotated m q T_out J_out B_out :
  length q = 6%nat -> length T_out = 16%nat -> length J_out = 36%nat -> length B_out = 36%nat ->
  exists T J B,
    forwardKinematics m (Some q) (Some T_out) = Some (Some T) /\
    model_zeroJacobian m (Some q) (Some J_out) = Some (Some J) /\
    model_bodyJacobian m (Some q) (Some B_out) = Some (Some B) /\
    forall j i, (j < 6)%nat -> (i < 3)%nat ->
      let rotation : matrix := fun i k => nth (4 * k + i) T 0%R in
      nth (6 * i + j) J 0%R = rotate rotation (fun n => nth (6 * n + j) B 0%R) i /\
      nth (6 * (3 + i) + j) J 0%R = rotate rotation (fun n => nth (6 * (3 + n) + j) B 0%R) i.
Proof.
  intros Hq HT HJ HB. pose proof (body_is_checked m) as Hc. unfold body_checked in Hc.
  destruct (symbolic_call float_literal 6 (g_fk _).1 _ _) as [T|] eqn:HsT; [|done].
  destruct (symbolic_call float_literal 6 (g_zero_jacobian _).1 _ _) as [J|] eqn:HsJ; [|done].
  destruct (symbolic_call float_literal 6 (g_body_jacobian _).1 _ _) as [B|] eqn:HsB; [|done].
  exists (map (fun pd => p_val (vars q []) pd.1) T), (map (fun pd => p_val (vars q []) pd.1) J), (map (fun pd => p_val (vars q []) pd.1) B).
  split; [apply one_result_call; exact (call_values float_literal _ [] _ _ q [] _ HsT Hq HT)|].
  split; [apply one_result_call; exact (call_values float_literal _ [] _ _ q [] _ HsJ Hq HJ)|].
  split; [apply one_result_call; exact (call_values float_literal _ [] _ _ q [] _ HsB Hq HB)|].
  assert (forall h j i, (h < 2)%nat -> (j < 6)%nat -> (i < 3)%nat ->
    p_val (vars q []) (entry J (6 * (3 * h + i) + j)).1 =
    p_val (vars q []) (p_rotate T (fun n => (entry B (6 * (3 * h + n) + j)).1) i)) as Hall.
  { intros h j i Hh Hj Hi. apply p_equal6; [done|].
    exact (all_below_spec _ _ i (all_below_spec _ _ j (all_below_spec _ _ h Hc Hh) Hj) Hi). }
  intros j i Hj Hi. cbv zeta. unfold rotate. rewrite !entry_values.
  pose proof (Hall 0%nat j i ltac:(lia) Hj Hi) as H0. pose proof (Hall 1%nat j i ltac:(lia) Hj Hi) as H1.
  unfold p_rotate in H0, H1. rewrite !p_add_val, !p_mul_val in H0, H1. by split.
Qed.

(** ** Witnesses: at the pose of zero angles *)

Definition zeros (n : nat) : list R := replicate n 0%R.

Lemma pose_is_joint_chain_witness : exists T,
  model_pose WillowTraits kJoint6 (Some (zeros 6)) (Some (zeros 16)) = Some (Some T) /\
  is_matrix T (chain (joints_before WillowTraits kJoint6) (zeros 6)).
Proof. exact (proj1 (pose_is_joint_chain WillowTraits kJoint6 (zeros 6) (zeros 16) eq_refl eq_refl)). Defined.

Lemma frames_are_rigid_witness : exists T,
  model_pose PantheraTraits kJoint3 (Some (zeros 6)) (Some (zeros 16)) = Some (Some T) /\
  length T = 16%nat /\ rigid (fun i k => nth (4 * k + i) T 0%R).
Proof. exact (frames_are_rigid PantheraTraits kJoint3 (zeros 6) (zeros 16) eq_refl eq_refl). Defined.

Lemma zero_jacobian_is_derivative_witness : exists (T : R -> list R) J,
  (forall t, forwardKinematics WillowTraits (Some (<[1%nat := t]> (zeros 6))) (Some (zeros 16)) = Some (Some (T t))) /\
  model_zeroJacobian WillowTraits (Some (zeros 6)) (Some (zeros 36)) = Some (Some J) /\
  forall i, (i < 3)%nat -> derivable_pt_lim (fun t => nth (12 + i) (T t) 0%R) 0 (nth (6 * i + 1) J 0%R).
Proof.
  destruct (zero_jacobian_is_derivative WillowTraits (zeros 6) 1 (zeros 16) (zeros 36) eq_refl eq_refl eq_refl ltac:(lia))
    as (T & J & HT & HJ & Hlin & _).
  exists T, J. split; [exact HT|]. split; [exact HJ|]. exact Hlin.
Defined.
