(* ===== verification/Dynamics.v ===== *)
(** * The dynamics of the arms

    What the generated dynamics are: the mass matrix is symmetric, gravity is
    linear in the gravity vector and comes from a potential, the Coriolis forces
    are quadratic in the velocities. *)

From Stdlib Require Import SpecFloat Reals Lra.
From stdpp Require Import nmap strings.
From S2P Require Import Prelude Arith Casadi Polynomials Symbolic Analyses WillowTraits PantheraTraits ArmModel Kinematics.

(** ** Memory *)

Lemma functions_well_shaped m : forallb well_shaped (functions_of (generated_of m)) = true.
Proof. destruct m; by vm_compute. Qed.

(** ** The mass matrix *)

Definition mass_numbers (m : arm_model) (i : nat) : option N :=
  outs ← number_values (f_code (g_mass (generated_of m)).1) 0 ∅ []; value_number outs 0 i.
Definition mass_symmetric (m : arm_model) : bool :=
  all_below 6 (fun i => all_below 6 (fun k =>
    match mass_numbers m (6 * i + k), mass_numbers m (6 * k + i) with
    | Some a, Some b => (a =? b)%N
    | _, _ => false
    end)).
Lemma mass_is_symmetric m : mass_symmetric m = true.
Proof. destruct m; by vm_compute. Qed.

(** C33: the mass matrix is symmetric, exactly: in any arithmetic, rounding included,
    the elements (i, k) and (k, i) that a call leaves are the same number. *)
Theorem mass_matrix_is_symmetric {F} (O : Ops F) m q M_out M i k :
  model_mass m q (Some M_out) = Some (Some M) -> (i < 6)%nat -> (k < 6)%nat ->
  M !! (6 * i + k)%nat = M !! (6 * k + i)%nat.
Proof.
  intros Hm Hi Hk. unfold model_mass, mass, one_result in Hm.
  destruct (call_casadi _ _ _) as [[|r [|]]|] eqn:Hc; try done. injection Hm as ->.
  pose proof (all_below_spec _ _ k (all_below_spec _ _ i (mass_is_symmetric m) Hi) Hk) as Hn. cbv beta in Hn.
  destruct (mass_numbers m (6 * i + k)) as [a|] eqn:Ha; [|done].
  destruct (mass_numbers m (6 * k + i)) as [b|] eqn:Hb; [|done]. apply N.eqb_eq in Hn as ->.
  exact (same_number _ _ _ _ 0 _ _ M b Hc eq_refl Ha Hb).
Qed.

(** ** Coriolis forces *)

Definition coriolis_degree (m : arm_model) : bool :=
  result_degree (g_coriolis (generated_of m)).1 [Some (replicate 6 (Degree 0)); Some (replicate 6 (Degree 1))] 6 2.
Lemma coriolis_has_degree m : coriolis_degree m = true.
Proof. destruct m; by vm_compute. Qed.

(** The Coriolis and centrifugal forces are quadratic in the velocities: [t] times
    the velocities at the same angles have t^2 times the forces. *)
Theorem coriolis_is_quadratic m t q dq C_out :
  length q = 6%nat -> length dq = 6%nat -> length C_out = 6%nat ->
  exists C,
    model_coriolis m (Some q) (Some dq) (Some C_out) = Some (Some C) /\
    model_coriolis m (Some q) (Some (map (Rmult t) dq)) (Some C_out) = Some (Some (map (Rmult (t ^ 2)) C)).
Proof.
  intros Hq Hdq HC.
  destruct (degree_call t _ _ [[6; 1; 1]; [6; 1; 1]] [Some q; Some dq] [Some q; Some (map (Rmult t) dq)] 6 2 C_out
    (coriolis_has_degree m)) as (C & H1 & H2); [..|done|].
  1-2: by repeat (constructor; [cbn; rewrite ?length_map; done|]); constructor.
  - done.
  - assert (forall l : list R, Forall2 (homogeneous t) (replicate (length l) (Degree 0)) (zip l l)) as H0
      by (intros l; induction l; constructor; [cbn; ring|done]).
    assert (forall l : list R, Forall2 (homogeneous t) (replicate (length l) (Degree 1)) (zip (map (Rmult t) l) l)) as H1
      by (intros l; induction l; constructor; [cbn; ring|done]).
    specialize (H0 q). specialize (H1 dq). rewrite Hq in H0. rewrite Hdq in H1.
    constructor; [by constructor|]. constructor; [by constructor|constructor].
  - exists C. by split; apply one_result_call.
Qed.

(** ** Gravity *)

Lemma others_val q v i : length q = 6%nat -> (i < length v)%nat -> p_val (vars q v) (p_other 6 i) = nth i v 0%R.
Proof.
  intros Hq Hi. destruct (lookup_lt_is_Some_2 v i Hi) as [x Hx]. rewrite <- Hq, (vars_other _ _ _ _ Hx).
  symmetry. by apply nth_lookup_Some.
Qed.
Definition p_combination (i : nat) : poly :=
  p_add (p_mul (p_other 6 6) (p_other 6 i)) (p_mul (p_other 6 7) (p_other 6 (3 + i))).
Definition gravity_linear (m : arm_model) : bool :=
  let call ps := symbolic_call float_literal 6 (g_gravity (generated_of m)).1 (symbolic_angles :: map Some (symbolic_constants [ps])) 6 in
  match call (map p_combination (seq 0 3)), call (map (p_other 6) (seq 0 3)), call (map (p_other 6) (seq 3 3)) with
  | Some G, Some U, Some W => all_below 6 (fun i => p_is_zero 6 (p_sub (entry G i).1
      (p_add (p_mul (p_other 6 6) (entry U i).1) (p_mul (p_other 6 7) (entry W i).1)))) &&
      (length G =? 6)%nat && (length U =? 6)%nat && (length W =? 6)%nat
  | _, _, _ => false
  end.
Lemma gravity_is_linear_checked m : gravity_linear m = true.
Proof. destruct m; by vm_compute. Qed.

(** The torques of gravity are linear in the vector of gravity. *)
Theorem gravity_is_linear m q u w a b g_out :
  length q = 6%nat -> length u = 3%nat -> length w = 3%nat -> length g_out = 6%nat ->
  exists U W,
    model_gravity m (Some q) (Some u) (Some g_out) = Some (Some U) /\
    model_gravity m (Some q) (Some w) (Some g_out) = Some (Some W) /\
    model_gravity m (Some q) (Some (zip_with (fun x y => a * x + b * y)%R u w)) (Some g_out)
    = Some (Some (zip_with (fun x y => a * x + b * y)%R U W)).
Proof.
  intros Hq Hu Hw Hg. pose proof (gravity_is_linear_checked m) as Hc. unfold gravity_linear in Hc.
  destruct (symbolic_call float_literal 6 _ (_ :: map Some (symbolic_constants [map p_combination _])) _) as [G|] eqn:HsG; [|done].
  destruct (symbolic_call float_literal 6 _ (_ :: map Some (symbolic_constants [map (p_other 6) (seq 0 3)])) _) as [U|] eqn:HsU; [|done].
  destruct (symbolic_call float_literal 6 _ (_ :: map Some (symbolic_constants [map (p_other 6) (seq 3 3)])) _) as [W|] eqn:HsW; [|done].
  rewrite !andb_true_iff, !Nat.eqb_eq in Hc. destruct Hc as [[[Hc HlG] HlU] HlW].
  destruct u as [|u0 [|u1 [|u2 [|]]]]; try done. destruct w as [|w0 [|w1 [|w2 [|]]]]; try done.
  set (v := [u0; u1; u2; w0; w1; w2; a; b]).
  assert (forall i, (i < 8)%nat -> p_val (vars q v) (p_other 6 i) = nth i v 0%R) as Hv by (intros i Hi; by apply others_val).
  pose proof (call_values float_literal _ _ _ _ q v g_out HsU Hq Hg) as HU. pose proof (call_values float_literal _ _ _ _ q v g_out HsW Hq Hg) as HW.
  pose proof (call_values float_literal _ _ _ _ q v g_out HsG Hq Hg) as HG. cbn [map seq] in HU, HW, HG. unfold p_combination in HG.
  rewrite !p_add_val, !p_mul_val, !Hv in HG by (cbn; lia). rewrite !Hv in HU, HW by (cbn; lia). cbn [nth v Nat.add] in HU, HW, HG.
  eexists _, _. split; [by apply one_result_call|]. split; [by apply one_result_call|].
  apply one_result_call. etransitivity; [exact HG|]. do 3 f_equal. apply list_eq. intros i.
  rewrite lookup_zip_with, !list_lookup_fmap. destruct (decide (i < 6)%nat) as [Hi|Hi].
  - pose proof (p_equal6 q v _ _ Hq (all_below_spec _ _ i Hc Hi)) as He.
    rewrite p_add_val, !p_mul_val, !Hv in He by (cbn; lia). unfold entry in He.
    destruct (lookup_lt_is_Some_2 G i) as [x Hx], (lookup_lt_is_Some_2 U i) as [y Hy], (lookup_lt_is_Some_2 W i) as [z Hz]; try lia.
    rewrite (nth_lookup_Some _ _ _ _ Hx), (nth_lookup_Some _ _ _ _ Hy), (nth_lookup_Some _ _ _ _ Hz) in He.
    rewrite Hx, Hy, Hz. cbn. by rewrite He.
  - rewrite (lookup_ge_None_2 G), (lookup_ge_None_2 U) by lia. done.
Qed.

Definition gravity_symmetric (m : arm_model) : bool :=
  let call j := symbolic_call float_literal j (g_gravity (generated_of m)).1
    (symbolic_angles :: map Some (symbolic_constants [map (p_other 6) (seq 0 3)])) 6 in
  let calls := map call (seq 0 6) in
  all_below 6 (fun i => all_below 6 (fun j =>
    match nth i calls None, nth j calls None with
    | Some Gi, Some Gj => p_is_zero 6 (p_sub (entry Gi j).2 (entry Gj i).2) && (length Gi =? 6)%nat && (length Gj =? 6)%nat
    | _, _ => false
    end)).
Lemma gravity_is_symmetric m : gravity_symmetric m = true.
Proof. destruct m; by vm_compute. Qed.

Lemma gravity_derivatives m j l q g g_out x : length q = 6%nat -> length g = 3%nat -> length g_out = 6%nat -> (j < 6)%nat ->
  x = nth j q 0%R ->
  symbolic_call float_literal j (g_gravity (generated_of m)).1
    (symbolic_angles :: map Some (symbolic_constants [map (p_other 6) (seq 0 3)])) 6 = Some l -> length l = 6%nat ->
  exists G : R -> list R, (forall t, model_gravity m (Some (<[j := t]> q)) (Some g) (Some g_out) = Some (Some (G t))) /\
    forall i, (i < 6)%nat -> derivable_pt_lim (fun t => nth i (G t) 0%R) x (p_val (vars q g) (entry l i).2).
Proof.
  intros Hq Hg Hout Hj -> Hs Hl. assert (<[j := nth j q 0%R]> q = q) as Hx.
  { destruct (lookup_lt_is_Some_2 q j) as [x Hx]; [lia|]. rewrite (nth_lookup_Some q j 0%R x Hx). by apply list_insert_id. }
  assert (forall q', length q' = 6%nat -> map (p_val (vars q' g)) (map (p_other 6) (seq 0 3)) = g) as Hvals.
  { intros q' Hq'. cbn [map seq]. rewrite !others_val by (done || lia). by destruct g as [|? [|? [|? [|]]]]. }
  destruct (call_derivatives float_literal j _ [map (p_other 6) (seq 0 3)] 6 l q g g_out (nth j q 0%R) Hs Hq Hout) with (2 := Hx) as (outs & Hcall & Hrel).
  { constructor; [|constructor]. apply List.Forall_map, List.Forall_forall. intros i [_ Hi]%in_seq t.
    unfold at_angle. rewrite !others_val by (rewrite ?length_insert; lia). done. }
  exists (fun t => map (fun f => f t) outs). split.
  - intros t. apply one_result_call. rewrite <- (Hcall t). cbn [map]. by rewrite (Hvals q Hq).
  - intros i Hi. apply (entry_derives _ _ _ _ _ Hrel). lia.
Qed.

(** C34: gravity comes from a potential: the torque of joint [j] varies with the angle
    of joint [i] as the torque of [i] varies with the angle of [j]. *)
Theorem gravity_is_conservative m q g g_out i j :
  length q = 6%nat -> length g = 3%nat -> length g_out = 6%nat -> (i < 6)%nat -> (j < 6)%nat ->
  exists (Gi Gj : R -> list R) (d : R),
    (forall t, model_gravity m (Some (<[i := t]> q)) (Some g) (Some g_out) = Some (Some (Gi t))) /\
    (forall t, model_gravity m (Some (<[j := t]> q)) (Some g) (Some g_out) = Some (Some (Gj t))) /\
    derivable_pt_lim (fun t => nth j (Gi t) 0%R) (nth i q 0%R) d /\
    derivable_pt_lim (fun t => nth i (Gj t) 0%R) (nth j q 0%R) d.
Proof.
  intros Hq Hg Hout Hi Hj. pose proof (all_below_spec _ _ j (all_below_spec _ _ i (gravity_is_symmetric m) Hi) Hj) as Hc.
  cbv beta in Hc. set (call := fun j : nat => _) in Hc.
  assert (forall k, (k < 6)%nat -> nth k (map call (seq 0 6)) None = call k) as Hnth
    by (intros k Hk; by destruct k as [|[|[|[|[|[|]]]]]]; try lia).
  rewrite !Hnth in Hc by done. destruct (call i) as [Gi|] eqn:HGi; [|done]. destruct (call j) as [Gj|] eqn:HGj; [|done].
  rewrite !andb_true_iff, !Nat.eqb_eq in Hc. destruct Hc as [[Hc Hli] Hlj].
  destruct (gravity_derivatives m i Gi q g g_out _ Hq Hg Hout Hi eq_refl HGi Hli) as (fi & Hfi & Hdi).
  destruct (gravity_derivatives m j Gj q g g_out _ Hq Hg Hout Hj eq_refl HGj Hlj) as (fj & Hfj & Hdj).
  exists fi, fj, (p_val (vars q g) (entry Gi j).2). split; [done|]. split; [done|]. split; [by apply Hdi|].
  rewrite (p_equal6 q g _ _ Hq Hc). by apply Hdj.
Qed.

(** ** Witnesses *)

(** The elements (1, 4) and (4, 1) in the program's single precision, where all
    angles are zero. *)
Lemma mass_matrix_is_symmetric_witness : exists M,
  model_mass (O:=float_ops trivial_sin trivial_cos) WillowTraits (Some zero_angles) (Some (replicate 36 (S754_zero false))) = Some (Some M) /\
  M !! 10%nat = M !! 25%nat.
Proof.
  destruct (model_mass (O:=float_ops trivial_sin trivial_cos) WillowTraits (Some zero_angles) (Some (replicate 36 (S754_zero false))))
    as [[M|]|] eqn:HM; [|vm_compute in HM; discriminate HM..].
  exists M. split; [reflexivity|].
  exact (mass_matrix_is_symmetric (float_ops trivial_sin trivial_cos) WillowTraits _ _ M 1 4 HM ltac:(lia) ltac:(lia)).
Defined.

Lemma gravity_is_conservative_witness : exists (Gi Gj : R -> list R) (d : R),
  (forall t, model_gravity WillowTraits (Some (<[1%nat := t]> (zeros 6))) (Some [0; 0; 1]%R) (Some (zeros 6)) = Some (Some (Gi t))) /\
  (forall t, model_gravity WillowTraits (Some (<[2%nat := t]> (zeros 6))) (Some [0; 0; 1]%R) (Some (zeros 6)) = Some (Some (Gj t))) /\
  derivable_pt_lim (fun t => nth 2 (Gi t) 0%R) 0 d /\ derivable_pt_lim (fun t => nth 1 (Gj t) 0%R) 0 d.
Proof. exact (gravity_is_conservative WillowTraits (zeros 6) [0; 0; 1]%R (zeros 6) 1 2 eq_refl eq_refl eq_refl ltac:(lia) ltac:(lia)). Defined.
