(* ===== verification/MpcForward1.v ===== *)
(** * Instructions of [willow_mpc_expl_vde_forw]

    Lines 66 to 74565 of willow_mpc_expl_vde_forw.c. *)

From S2P Require Import Prelude Casadi.

Definition casadi_f0_1 : list instruction := [
  Arg 0 0 6; Out 0 0 0; Arg 1 0 7; Out 0 1 1; Arg 2 0 8; Out 0 2 2; Arg 3 0 9; Out 0 3 3; Arg 4 0 10; Out 0 4 4;
  Arg 5 0 11; Out 0 5 5; Lit 6 3009 7; Lit 7 81022799999999999 19; Arg 8 0 2; Sin 9 8;
  Lit 10 14680600000000002 19; Lit 11 57735000000000002 20; Lit 12 17809999999999999 20;
  Lit 13 (-80407999999999999) 20; Lit 14 (-63539999999999951) 21; Arg 15 0 5; Cos 16 15; Mul 17 14 16;
  Lit 18 82379999999999994 21; Sin 15 15; Mul 19 18 15; Add 17 17 19; Mul 19 17 16; Sub 20 13 19; Mul 21 18 16;
  Mul 22 14 15; Sub 21 21 22; Mul 22 21 15; Add 20 20 22; Lit 23 130247 8; Add 20 20 23; Add 12 12 20;
  Lit 20 25552041058139319 17; Lit 24 (-49119999999999984) 21; Lit 25 (-78693) 9; Lit 26 96069999999999993 21;
  Mul 27 26 16; Lit 28 (-19297299999999999) 19; Mul 29 28 15; Add 27 27 29; Add 27 25 27; Sub 29 24 27;
  Sq 30 29; Lit 31 (-31543689999999985) 18; Lit 32 (-34077999999999997) 18; Mul 33 28 16; Mul 34 26 15;
  Sub 33 33 34; Add 33 32 33; Sub 34 31 33; Sq 35 34; Add 36 30 35; Mul 36 20 36; Add 12 12 36; Lit 36 15129 8;
  Sub 22 23 22; Add 22 36 22; Lit 37 81326650660641028 19; Add 30 37 30; Mul 30 20 30; Add 22 22 30;
  Sub 12 12 22; Lit 30 17626 8; Add 19 19 23; Add 30 30 19; Add 37 37 35; Mul 37 20 37; Add 30 30 37;
  Sub 30 30 22; Add 37 12 30; Arg 35 0 4; Cos 19 35; Mul 38 19 30; Sin 35 35; Lit 39 19000000000000001 23;
  Lit 40 61999999999999999 23; Mul 41 40 16; Lit 42 (-69999999999999997) 23; Mul 43 42 15; Add 41 41 43;
  Lit 43 (-34999999999999998) 23; Mul 44 43 15; Sub 41 41 44; Add 41 39 41; Lit 44 (-23043160247559692) 18;
  Mul 45 44 29; Sub 41 41 45; Mul 45 35 41; Sub 38 38 45; Mul 45 38 19; Mul 46 19 41; Mul 47 35 12;
  Sub 46 46 47; Mul 47 46 35; Sub 45 45 47; Sub 37 37 45; Add 37 37 22; Add 11 11 37;
  Lit 37 33804363298149098 17; Lit 47 104537160417653 17; Lit 48 26250000000000002 19;
  Lit 49 (-15587418131885522) 21; Lit 50 68266656897627187 17; Mul 27 50 27; Add 49 49 27; Mul 27 19 49;
  Lit 51 65105751830154185 18; Mul 52 51 35; Sub 27 27 52; Add 27 48 27; Sub 52 47 27; Sq 53 52;
  Lit 54 37000000394383802 18; Lit 55 41000000000000002 18; Lit 56 (-10009867374848859) 18; Mul 33 50 33;
  Add 56 56 33; Add 33 55 56; Sub 57 54 33; Sq 58 57; Add 59 53 58; Mul 59 37 59; Add 11 11 59;
  Lit 59 61516000000000001 20; Add 60 59 22; Lit 61 35766769331050302 18; Lit 62 62758999999999995 18;
  Mul 63 51 19; Mul 64 35 49; Add 63 63 64; Add 63 62 63; Sub 64 61 63; Sq 65 64; Add 53 65 53; Mul 53 37 53;
  Add 60 60 53; Sub 11 11 60; Arg 53 0 3; Cos 66 53; Lit 67 2 0; Lit 68 (-27386000000000001) 20;
  Lit 69 35999999999999998 22; Mul 70 42 16].
Definition casadi_f0_2 : list instruction := [
  Mul 71 40 15; Sub 70 70 71; Mul 71 43 16; Sub 70 70 71; Add 70 69 70; Mul 71 44 34; Sub 70 70 71;
  Mul 71 67 70; Mul 72 71 19; Mul 73 21 16; Lit 74 (-41189999999999997) 21; Add 73 73 74; Mul 74 20 29;
  Mul 75 74 34; Sub 73 73 75; Add 75 73 73; Mul 76 75 35; Add 72 72 76; Mul 76 35 73; Mul 77 19 70;
  Add 76 76 77; Sub 72 72 76; Add 72 68 72; Mul 76 37 64; Mul 77 76 57; Sub 72 72 77; Mul 77 67 72;
  Mul 78 66 77; Sin 53 53; Mul 79 53 11; Sub 78 78 79; Mul 79 78 53; Add 80 11 79; Add 80 80 60; Add 10 10 80;
  Lit 80 68880865220038789 17; Lit 81 40138699999999984 19; Lit 82 29960035638188816 20;
  Lit 83 71340300885837415 17; Mul 27 83 27; Add 82 82 27; Sub 27 81 82; Sq 84 27; Lit 85 32500479999999984 18;
  Lit 86 528 4; Lit 87 10604088785269368 18; Mul 33 83 33; Add 87 87 33; Mul 33 66 87;
  Lit 88 10250648473135598 18; Mul 63 83 63; Add 88 88 63; Mul 63 53 88; Sub 33 33 63; Add 33 86 33;
  Sub 63 85 33; Sq 89 63; Add 90 84 89; Mul 90 80 90; Add 10 10 90; Lit 90 1444279 8; Sub 60 60 79;
  Add 60 90 60; Lit 79 11056122999999997 17; Lit 91 24818000000000001 17; Mul 92 66 88; Mul 93 53 87;
  Add 92 92 93; Add 92 91 92; Sub 93 79 92; Sq 94 93; Add 84 94 84; Mul 84 80 84; Add 60 60 84; Sub 10 10 60;
  Mul 84 9 10; Cos 8 8; Lit 95 (-26343899999999999) 19; Mul 96 78 66; Sub 96 96 72; Add 96 95 96; Mul 72 80 93;
  Mul 97 72 63; Sub 96 96 97; Mul 97 67 96; Mul 98 8 97; Add 84 84 98; Mul 98 84 9; Add 99 98 60; Add 99 7 99;
  Lit 100 60931733999408122 17; Lit 101 (-14104253) 8; Lit 102 (-28499999999999998) 17;
  Lit 103 46061201062284104 18; Lit 104 58338740386404775 17; Mul 92 104 92; Add 103 103 92; Mul 92 8 103;
  Lit 105 13540109348464583 18; Mul 33 104 33; Add 105 105 33; Mul 33 9 105; Sub 92 92 33; Add 92 102 92;
  Sub 33 101 92; Sq 106 33; Lit 107 (-48229800000000001) 19; Lit 108 (-26250000000000002) 19;
  Lit 109 16722288012522134 19; Mul 110 104 82; Add 109 109 110; Add 110 108 109; Sub 111 107 110; Sq 112 111;
  Add 113 106 112; Mul 113 100 113; Add 99 99 113; Arg 113 0 1; Cos 114 113; Lit 115 (-79999999999999996) 23;
  Mul 116 84 8; Sub 116 116 96; Add 116 115 116; Mul 96 100 33; Mul 117 9 103; Mul 118 8 105; Add 117 117 118;
  Mul 118 96 117; Add 116 116 118; Mul 116 67 116; Mul 118 114 116; Sin 113 113; Lit 119 10185399999999992 19;
  Sub 98 10 98; Add 98 98 60; Add 119 119 98; Sq 98 117; Add 112 112 98; Mul 112 100 112; Add 119 119 112;
  Sub 119 119 99; Mul 112 113 119; Sub 118 118 112; Mul 112 118 113; Sub 99 99 112; Add 6 6 99;
  Lit 99 46553910740168264 17; Lit 112 (-56369999999999997) 21; Lit 60 (-30323859648594256) 18].
Definition casadi_f0_3 : list instruction := [
  Lit 120 78500201571402428 17; Mul 92 120 92; Add 60 60 92; Mul 92 114 60; Mul 121 120 117; Mul 122 113 121;
  Add 92 92 122; Sub 112 112 92; Sq 122 112; Lit 123 14535500000000001 19; Lit 124 (-10369309782515752) 19;
  Mul 110 120 110; Add 124 124 110; Sub 123 123 124; Sq 110 123; Add 122 122 110; Mul 122 99 122; Add 6 6 122;
  Lit 122 41447158900000005 16; Lit 110 (-72688520114221854) 22; Lit 125 87105105532336013 17; Mul 92 125 92;
  Add 110 110 92; Sq 92 110; Lit 126 1874337385347298 19; Mul 127 125 124; Add 126 126 127; Sq 127 126;
  Add 92 92 127; Mul 92 122 92; Add 6 6 92; Sq 92 6; Lit 127 (-38199999999999998) 22;
  Lit 128 (-23999999999999999) 22; Mul 129 46 19; Mul 130 38 35; Add 129 129 130; Add 129 128 129;
  Mul 130 76 52; Sub 129 129 130; Mul 130 129 66; Lit 131 (-34199999999999999) 22; Mul 132 75 19; Mul 133 71 35;
  Sub 132 132 133; Mul 133 35 70; Mul 134 19 73; Sub 133 133 134; Add 132 132 133; Add 132 131 132;
  Mul 133 37 52; Mul 134 133 57; Sub 132 132 134; Mul 134 53 132; Add 130 130 134; Add 130 127 130;
  Mul 134 72 27; Sub 130 130 134; Mul 134 9 130; Lit 135 14589999999999999 21; Add 136 132 132; Mul 137 66 136;
  Mul 138 53 129; Sub 137 137 138; Mul 138 66 132; Sub 137 137 138; Add 137 135 137; Mul 138 80 27;
  Mul 139 138 63; Sub 137 137 139; Add 139 137 137; Mul 140 8 139; Add 134 134 140; Mul 140 8 137;
  Sub 134 134 140; Mul 140 100 111; Mul 141 140 117; Add 134 134 141; Lit 141 36102591500000001 16;
  Mul 142 141 124; Mul 143 142 121; Sub 134 134 143; Mul 143 114 134; Lit 144 (-16860000000000001) 21;
  Mul 145 130 8; Mul 146 9 137; Sub 145 145 146; Add 145 144 145; Mul 146 96 111; Sub 145 145 146;
  Mul 146 141 60; Mul 147 146 124; Sub 145 145 147; Mul 147 113 145; Sub 143 143 147; Sq 147 143; Add 92 92 147;
  Lit 147 (-28340607100000001) 16; Mul 148 147 105; Mul 149 109 148; Add 149 137 149; Mul 150 9 149;
  Mul 151 147 103; Mul 152 109 151; Add 152 130 152; Mul 153 8 152; Sub 150 150 153; Mul 153 9 148;
  Mul 154 8 151; Sub 153 153 154; Mul 154 108 153; Add 150 150 154; Mul 154 113 150; Mul 155 9 152;
  Mul 156 8 149; Add 155 155 156; Mul 156 8 148; Mul 157 9 151; Add 156 156 157; Mul 156 108 156;
  Add 155 155 156; Mul 156 114 155; Add 154 154 156; Sq 156 154; Add 92 92 156; Lit 156 165335532 8;
  Mul 157 156 88; Mul 158 157 82; Sub 158 129 158; Mul 159 66 158; Mul 160 156 82; Mul 161 160 87;
  Sub 161 132 161; Mul 162 53 161; Add 159 159 162; Mul 162 9 159; Mul 163 66 161; Mul 164 53 158;
  Sub 163 163 164; Mul 164 8 163; Add 162 162 164; Mul 164 156 87; Mul 165 66 164; Lit 166 (-165335532) 8;
  Mul 167 166 88; Mul 168 53 167; Add 165 165 168; Mul 168 8 165; Mul 169 66 167].
Definition casadi_f0_4 : list instruction := [
  Mul 170 53 164; Sub 169 169 170; Mul 170 9 169; Sub 168 168 170; Mul 168 108 168; Sub 162 162 168;
  Mul 168 114 162; Mul 170 8 159; Mul 171 9 163; Sub 170 170 171; Mul 171 9 165; Mul 172 8 169; Add 171 171 172;
  Mul 172 108 171; Add 170 170 172; Mul 172 113 170; Sub 168 168 172; Sq 172 168; Add 92 92 172;
  Lit 172 (-49996528554077319) 19; Lit 173 (-117950866) 8; Mul 174 173 49; Mul 175 49 174; Add 172 172 175;
  Sub 172 172 22; Mul 175 35 174; Lit 176 (-76792798099477713) 18; Mul 177 176 19; Add 175 175 177;
  Mul 177 62 175; Mul 178 176 35; Mul 179 19 174; Sub 178 178 179; Mul 179 48 178; Sub 177 177 179;
  Add 177 172 177; Mul 179 53 177; Mul 180 176 56; Add 180 70 180; Mul 181 19 180; Mul 182 56 174;
  Add 182 73 182; Mul 183 35 182; Add 181 181 183; Mul 183 55 175; Add 181 181 183; Mul 183 66 181;
  Sub 179 179 183; Mul 183 86 175; Sub 179 179 183; Mul 183 9 179; Mul 184 53 181; Mul 185 66 177;
  Add 184 184 185; Mul 185 91 175; Add 184 184 185; Mul 185 8 184; Add 183 183 185; Mul 175 102 175;
  Mul 185 66 178; Mul 186 8 185; Mul 187 53 178; Mul 188 9 187; Add 186 186 188; Mul 186 108 186;
  Sub 175 175 186; Add 183 183 175; Mul 175 114 183; Mul 186 8 179; Mul 188 9 184; Sub 186 186 188;
  Mul 188 9 185; Mul 189 8 187; Sub 188 188 189; Mul 189 108 188; Add 186 186 189; Mul 189 113 186;
  Sub 175 175 189; Sq 189 175; Add 92 92 189; Lit 189 (-56493592345755437) 20; Lit 190 (-77356633259099993) 21;
  Mul 191 190 16; Lit 192 (-15538400738948999) 19; Mul 193 192 15; Sub 191 191 193; Mul 193 25 191;
  Mul 194 192 16; Mul 195 190 15; Add 194 194 195; Mul 195 32 194; Sub 193 193 195; Add 189 189 193;
  Mul 193 19 189; Lit 195 (-79500600643088921) 22; Mul 196 195 16; Lit 197 1475867732684376 19; Mul 198 197 15;
  Add 196 196 198; Lit 198 18848000000000001 17; Mul 199 198 191; Sub 196 196 199; Mul 199 35 196;
  Add 193 193 199; Mul 199 48 191; Mul 200 19 194; Mul 201 55 200; Sub 199 199 201; Add 193 193 199;
  Mul 199 66 193; Mul 201 197 16; Mul 202 195 15; Sub 201 201 202; Mul 202 198 194; Add 201 201 202;
  Mul 202 62 200; Mul 203 35 194; Mul 204 48 203; Sub 202 202 204; Add 202 201 202; Mul 204 53 202;
  Add 199 199 204; Mul 204 86 200; Sub 199 199 204; Mul 204 9 199; Mul 205 66 202; Mul 206 53 193;
  Sub 205 205 206; Mul 206 91 200; Add 205 205 206; Mul 206 8 205; Add 204 204 206; Mul 200 102 200;
  Mul 206 66 203; Mul 207 53 191; Add 206 206 207; Mul 207 8 206; Mul 208 66 191; Mul 209 53 203;
  Sub 208 208 209; Mul 209 9 208; Sub 207 207 209; Mul 207 108 207; Sub 200 200 207; Add 204 204 200;
  Mul 200 114 204; Mul 207 8 199; Mul 209 9 205; Sub 207 207 209].
Definition casadi_f0_5 : list instruction := [
  Mul 209 9 206; Mul 210 8 208; Add 209 209 210; Mul 210 108 209; Add 207 207 210; Mul 210 113 207;
  Sub 200 200 210; Sq 210 200; Add 92 92 210; Sqrt 92 92; Div 210 6 92; Arg 211 3 0;
  Lit 212 77619844000000005 17; Lit 213 5 1; Lit 214 14324999999999999 17; Arg 215 0 0; Cos 216 215;
  Mul 217 216 113; Mul 218 114 0; Mul 219 217 218; Sin 215 215; Mul 220 215 1; Sub 219 219 220; Mul 220 216 114;
  Mul 221 113 0; Mul 222 220 221; Sub 219 219 222; Mul 222 214 219; Mul 223 213 222; Mul 223 212 223;
  Mul 224 215 114; Mul 225 101 224; Mul 226 107 216; Add 225 225 226; Mul 226 223 225; Mul 227 216 1;
  Mul 228 215 113; Mul 229 228 218; Add 227 227 229; Mul 229 224 221; Sub 227 227 229; Mul 229 214 227;
  Mul 230 213 229; Mul 230 212 230; Mul 231 101 220; Mul 232 107 215; Sub 231 231 232; Mul 232 230 231;
  Sub 232 226 232; Mul 233 225 223; Mul 234 231 230; Sub 234 233 234; Add 235 232 234;
  Lit 236 (-15999999999999999) 22; Mul 237 236 114; Lit 238 (-70837400000000007) 19; Mul 239 238 113;
  Sub 237 237 239; Mul 239 237 220; Mul 240 144 113; Mul 241 240 215; Add 239 239 241; Mul 241 115 216;
  Sub 239 239 241; Mul 241 212 231; Mul 242 101 113; Sub 242 214 242; Mul 243 241 242; Sub 243 239 243;
  Mul 244 213 227; Mul 245 243 244; Mul 246 237 224; Mul 247 240 216; Sub 246 246 247; Mul 247 115 215;
  Sub 246 246 247; Mul 247 212 225; Mul 248 247 242; Sub 248 246 248; Mul 249 213 219; Mul 250 248 249;
  Sub 251 245 250; Sub 235 235 251; Mul 251 249 248; Mul 252 244 243; Sub 253 251 252; Add 235 235 253;
  Mul 253 220 8; Mul 254 217 9; Add 253 253 254; Mul 254 9 218; Mul 255 8 221; Sub 254 254 255; Mul 255 253 254;
  Mul 256 217 8; Mul 257 220 9; Sub 256 256 257; Mul 257 9 221; Mul 258 8 218; Add 257 257 258; Mul 258 256 257;
  Sub 259 1 2; Mul 260 215 259; Sub 258 258 260; Add 255 255 258; Mul 258 213 255; Lit 260 (-1297473) 8;
  Mul 261 114 9; Mul 262 113 8; Sub 261 261 262; Mul 262 260 261; Lit 263 (-52687799999999998) 19;
  Mul 264 113 9; Mul 265 114 8; Add 264 264 265; Mul 265 263 264; Add 262 262 265; Mul 265 224 8; Mul 266 228 9;
  Add 265 265 266; Mul 266 262 265; Mul 267 127 261; Lit 268 29179999999999998 21; Mul 269 268 264;
  Add 267 267 269; Mul 269 267 216; Add 266 266 269; Mul 269 135 253; Mul 270 95 215; Add 269 269 270;
  Sub 266 266 269; Lit 269 118070539 8; Mul 270 102 224; Mul 271 108 216; Add 270 270 271; Mul 271 79 265;
  Mul 272 81 216; Mul 273 228 8; Mul 274 224 9; Sub 273 273 274; Mul 274 85 273; Add 272 272 274;
  Add 271 271 272; Add 271 270 271; Mul 272 269 271; Mul 274 102 113; Sub 274 214 274; Mul 275 79 261;
  Mul 276 85 264].
Definition casadi_f0_6 : list instruction := [
  Add 275 275 276; Add 275 274 275; Mul 276 272 275; Sub 276 266 276; Mul 277 258 276; Mul 278 265 254;
  Mul 279 216 259; Mul 280 273 257; Add 279 279 280; Add 278 278 279; Mul 279 213 278; Mul 280 262 253;
  Mul 281 267 215; Sub 280 280 281; Mul 281 95 216; Mul 282 135 265; Sub 281 281 282; Sub 280 280 281;
  Mul 281 102 220; Mul 282 108 215; Sub 281 281 282; Mul 282 79 253; Mul 283 85 256; Mul 284 81 215;
  Sub 283 283 284; Add 282 282 283; Add 282 281 282; Mul 283 269 282; Mul 284 283 275; Sub 284 280 284;
  Mul 285 279 284; Sub 286 277 285; Mul 287 108 218; Mul 288 9 287; Mul 289 102 1; Mul 290 108 221;
  Add 289 289 290; Mul 290 8 289; Sub 288 288 290; Mul 290 264 288; Mul 291 8 287; Mul 292 9 289;
  Add 291 291 292; Mul 292 261 291; Sub 290 290 292; Mul 292 281 278; Mul 293 270 255; Sub 292 292 293;
  Add 290 290 292; Mul 292 213 290; Mul 292 269 292; Mul 293 275 292; Mul 294 256 288; Mul 295 102 218;
  Mul 296 215 295; Sub 294 294 296; Mul 296 253 291; Sub 294 294 296; Mul 296 261 254; Mul 297 264 257;
  Add 296 296 297; Mul 297 270 296; Mul 298 274 278; Sub 297 297 298; Add 294 294 297; Mul 297 213 294;
  Mul 297 269 297; Mul 298 297 282; Mul 299 216 295; Mul 300 273 288; Add 299 299 300; Mul 300 265 291;
  Sub 299 299 300; Mul 300 274 255; Mul 301 281 296; Sub 300 300 301; Add 299 299 300; Mul 300 213 299;
  Mul 300 269 300; Mul 301 300 271; Mul 302 292 275; Add 303 301 302; Add 298 298 303; Sub 304 293 298;
  Mul 305 282 297; Mul 306 271 300; Add 293 306 293; Add 305 305 293; Sub 302 302 305; Add 304 304 302;
  Mul 302 284 279; Mul 307 276 258; Sub 308 302 307; Add 304 304 308; Sub 286 286 304; Mul 304 253 66;
  Mul 308 256 53; Sub 304 304 308; Mul 308 66 254; Mul 309 53 257; Sub 308 308 309; Mul 309 304 308;
  Mul 310 253 53; Mul 311 256 66; Add 310 310 311; Mul 311 53 254; Mul 312 66 257; Add 311 311 312;
  Mul 312 310 311; Add 313 3 259; Mul 314 215 313; Sub 312 312 314; Add 309 309 312; Mul 312 213 309;
  Lit 314 (-37809999999999992) 21; Mul 315 261 66; Mul 316 264 53; Sub 315 315 316; Mul 316 314 315;
  Lit 317 (-54772000000000002) 20; Mul 318 261 53; Mul 319 264 66; Add 318 318 319; Mul 319 317 318;
  Add 316 316 319; Mul 319 265 66; Mul 320 273 53; Sub 319 319 320; Mul 320 316 319; Mul 321 128 315;
  Lit 322 (-68399999999999997) 22; Mul 323 322 318; Add 321 321 323; Mul 323 321 216; Add 320 320 323;
  Mul 323 131 304; Mul 324 68 215; Add 323 323 324; Sub 320 320 323; Lit 323 47384665999999998 17;
  Mul 324 91 265; Mul 325 86 273; Add 324 324 325; Add 324 270 324; Mul 325 61 319; Mul 326 47 216;
  Mul 327 265 53; Mul 328 273 66; Add 327 327 328].
Definition casadi_f0_7 : list instruction := [
  Mul 328 54 327; Add 326 326 328; Add 325 325 326; Add 325 324 325; Mul 326 323 325; Mul 328 91 261;
  Mul 329 86 264; Add 328 328 329; Add 328 274 328; Mul 329 61 315; Mul 330 54 318; Add 329 329 330;
  Add 329 328 329; Mul 330 326 329; Sub 330 320 330; Mul 331 312 330; Mul 332 319 308; Mul 333 216 313;
  Mul 334 327 311; Add 333 333 334; Add 332 332 333; Mul 333 213 332; Mul 334 316 304; Mul 335 321 215;
  Sub 334 334 335; Mul 335 68 216; Mul 336 131 319; Sub 335 335 336; Sub 334 334 335; Mul 335 91 253;
  Mul 336 86 256; Add 335 335 336; Add 335 281 335; Mul 336 61 304; Mul 337 54 310; Mul 338 47 215;
  Sub 337 337 338; Add 336 336 337; Add 336 335 336; Mul 337 323 336; Mul 338 337 329; Sub 338 334 338;
  Mul 339 333 338; Sub 340 331 339; Mul 341 86 259; Sub 341 341 291; Mul 342 66 341; Mul 343 91 259;
  Sub 343 288 343; Mul 344 53 343; Sub 342 342 344; Mul 344 315 342; Mul 345 53 341; Mul 346 66 343;
  Add 345 345 346; Mul 346 318 345; Add 344 344 346; Mul 346 335 332; Mul 347 324 309; Sub 346 346 347;
  Add 344 344 346; Mul 346 213 344; Mul 346 323 346; Mul 347 329 346; Mul 348 304 342; Mul 349 310 345;
  Mul 350 86 254; Mul 351 91 257; Sub 350 350 351; Sub 350 295 350; Mul 351 215 350; Sub 349 349 351;
  Add 348 348 349; Mul 349 315 308; Mul 351 318 311; Add 349 349 351; Mul 351 324 349; Mul 352 328 332;
  Sub 351 351 352; Add 348 348 351; Mul 351 213 348; Mul 351 323 351; Mul 352 351 336; Mul 353 319 342;
  Mul 354 216 350; Mul 355 327 345; Add 354 354 355; Add 353 353 354; Mul 354 328 309; Mul 355 335 349;
  Sub 354 354 355; Add 353 353 354; Mul 354 213 353; Mul 354 323 354; Mul 355 354 325; Mul 356 346 329;
  Add 357 355 356; Add 352 352 357; Sub 358 347 352; Mul 359 336 351; Mul 360 325 354; Add 347 360 347;
  Add 359 359 347; Sub 356 356 359; Add 358 358 356; Mul 356 338 333; Mul 361 330 312; Sub 362 356 361;
  Add 358 358 362; Sub 340 340 358; Mul 358 304 19; Mul 362 215 35; Add 358 358 362; Mul 362 19 308;
  Mul 363 35 313; Sub 362 362 363; Mul 363 358 362; Mul 364 304 35; Mul 365 215 19; Sub 364 364 365;
  Mul 365 35 308; Mul 366 19 313; Add 365 365 366; Mul 366 364 365; Sub 367 311 4; Mul 368 310 367;
  Add 366 366 368; Add 363 363 366; Mul 366 213 363; Lit 368 26809999999999996 21; Mul 369 315 19;
  Mul 370 368 369; Mul 371 315 35; Mul 372 39 371; Lit 373 71999999999999997 22; Mul 374 373 318;
  Add 372 372 374; Add 370 370 372; Mul 372 319 19; Mul 374 216 35; Sub 372 372 374; Mul 374 370 372;
  Mul 375 39 369; Lit 376 2497 8; Mul 377 376 371; Add 375 375 377; Mul 377 319 35; Mul 378 216 19;
  Add 377 377 378].
Definition casadi_f0_8 : list instruction := [
  Mul 378 375 377; Add 374 374 378; Mul 378 69 364; Add 374 374 378; Lit 378 37429752999999999 17;
  Mul 379 62 319; Mul 380 48 216; Mul 381 55 327; Add 380 380 381; Add 379 379 380; Add 379 324 379;
  Lit 380 35419999999999991 19; Mul 381 380 372; Mul 382 24 377; Mul 383 31 327; Add 382 382 383;
  Add 381 381 382; Add 381 379 381; Mul 382 378 381; Mul 383 62 315; Mul 384 55 318; Add 383 383 384;
  Add 383 328 383; Mul 384 380 369; Mul 385 24 371; Mul 386 31 318; Add 385 385 386; Add 384 384 385;
  Add 384 383 384; Mul 385 382 384; Sub 385 374 385; Mul 386 366 385; Mul 387 372 362; Mul 388 377 365;
  Mul 389 327 367; Add 388 388 389; Add 387 387 388; Mul 388 213 387; Mul 389 370 358; Mul 390 375 364;
  Add 389 389 390; Mul 390 69 377; Sub 389 389 390; Mul 390 62 304; Mul 391 55 310; Mul 392 48 215;
  Sub 391 391 392; Add 390 390 391; Add 390 335 390; Mul 391 380 358; Mul 392 24 364; Mul 393 31 310;
  Add 392 392 393; Add 391 391 392; Add 391 390 391; Mul 392 378 391; Mul 393 392 384; Sub 393 389 393;
  Mul 394 388 393; Sub 395 386 394; Mul 396 48 311; Mul 397 55 313; Sub 396 396 397; Sub 396 342 396;
  Mul 397 19 396; Mul 398 55 308; Mul 399 62 311; Sub 398 398 399; Sub 398 350 398; Mul 399 35 398;
  Sub 397 397 399; Mul 399 369 397; Mul 400 35 396; Mul 401 19 398; Add 400 400 401; Mul 401 371 400;
  Mul 402 62 313; Mul 403 48 308; Sub 402 402 403; Sub 402 345 402; Mul 403 318 402; Add 401 401 403;
  Add 399 399 401; Mul 401 390 387; Mul 403 379 363; Sub 401 401 403; Add 399 399 401; Mul 401 213 399;
  Mul 401 378 401; Mul 403 384 401; Mul 404 358 397; Mul 405 364 400; Mul 406 310 402; Add 405 405 406;
  Add 404 404 405; Mul 405 369 362; Mul 406 371 365; Mul 407 318 367; Add 406 406 407; Add 405 405 406;
  Mul 406 379 405; Mul 407 383 387; Sub 406 406 407; Add 404 404 406; Mul 406 213 404; Mul 406 378 406;
  Mul 407 406 391; Mul 408 372 397; Mul 409 377 400; Mul 410 327 402; Add 409 409 410; Add 408 408 409;
  Mul 409 383 363; Mul 410 390 405; Sub 409 409 410; Add 408 408 409; Mul 409 213 408; Mul 409 378 409;
  Mul 410 409 381; Mul 411 401 384; Add 412 410 411; Add 407 407 412; Sub 413 403 407; Mul 414 391 406;
  Mul 415 381 409; Add 403 415 403; Add 414 414 403; Sub 411 411 414; Add 413 413 411; Mul 411 393 388;
  Mul 416 385 366; Sub 417 411 416; Add 413 413 417; Sub 395 395 413; Sub 413 362 5; Mul 417 358 413;
  Mul 418 364 16; Mul 419 310 15; Sub 418 418 419; Mul 419 16 365; Mul 420 15 367; Sub 419 419 420;
  Mul 420 418 419; Mul 421 364 15; Mul 422 310 16; Add 421 421 422; Mul 422 15 365; Mul 423 16 367;
  Add 422 422 423].
Definition casadi_f0_9 : list instruction := [
  Mul 423 421 422; Add 420 420 423; Add 417 417 420; Mul 420 213 417; Lit 423 (-74054000000000004) 20;
  Mul 424 423 369; Mul 425 371 16; Mul 426 318 15; Sub 425 425 426; Mul 426 40 425; Mul 427 371 15;
  Mul 428 318 16; Add 427 427 428; Mul 428 42 427; Add 426 426 428; Add 424 424 426; Mul 426 424 372;
  Mul 428 40 369; Mul 429 14 425; Mul 430 18 427; Add 429 429 430; Add 428 428 429; Mul 429 377 16;
  Mul 430 327 15; Sub 429 429 430; Mul 430 428 429; Add 426 426 430; Mul 430 43 418;
  Lit 431 41189999999999997 21; Mul 432 431 358; Sub 430 430 432; Add 426 426 430; Lit 430 80521113 8;
  Mul 432 198 372; Mul 433 25 377; Mul 434 32 327; Add 433 433 434; Add 432 432 433; Add 432 379 432;
  Lit 433 (-94756709999999994) 18; Mul 434 433 372; Mul 435 26 429; Mul 436 377 15; Mul 437 327 16;
  Add 436 436 437; Mul 437 28 436; Add 435 435 437; Add 434 434 435; Add 434 432 434; Mul 435 430 434;
  Mul 437 198 369; Mul 438 25 371; Mul 439 32 318; Add 438 438 439; Add 437 437 438; Add 437 383 437;
  Mul 438 433 369; Mul 439 26 425; Mul 440 28 427; Add 439 439 440; Add 438 438 439; Add 438 437 438;
  Mul 439 435 438; Sub 439 426 439; Mul 440 420 439; Mul 441 372 413; Mul 442 429 419; Mul 443 436 422;
  Add 442 442 443; Add 441 441 442; Mul 442 213 441; Mul 443 424 358; Mul 444 428 418; Add 443 443 444;
  Mul 444 43 429; Mul 445 431 372; Sub 444 444 445; Sub 443 443 444; Mul 444 198 358; Mul 445 25 364;
  Mul 446 32 310; Add 445 445 446; Add 444 444 445; Add 444 390 444; Mul 445 433 358; Mul 446 26 418;
  Mul 447 28 421; Add 446 446 447; Add 445 445 446; Add 445 444 445; Mul 446 430 445; Mul 447 446 438;
  Sub 447 443 447; Mul 448 442 447; Sub 449 440 448; Mul 450 25 367; Mul 451 32 365; Sub 450 450 451;
  Sub 450 397 450; Mul 451 369 450; Mul 452 32 362; Mul 453 198 367; Sub 452 452 453; Sub 452 400 452;
  Mul 453 16 452; Mul 454 198 365; Mul 455 25 362; Sub 454 454 455; Sub 454 402 454; Mul 455 15 454;
  Sub 453 453 455; Mul 455 425 453; Mul 456 15 452; Mul 457 16 454; Add 456 456 457; Mul 457 427 456;
  Add 455 455 457; Add 451 451 455; Mul 455 444 441; Mul 457 432 417; Sub 455 455 457; Add 451 451 455;
  Mul 455 213 451; Mul 455 430 455; Mul 457 438 455; Mul 458 358 450; Mul 459 418 453; Mul 460 421 456;
  Add 459 459 460; Add 458 458 459; Mul 459 369 413; Mul 460 425 419; Mul 461 427 422; Add 460 460 461;
  Add 459 459 460; Mul 460 432 459; Mul 461 437 441; Sub 460 460 461; Add 458 458 460; Mul 460 213 458;
  Mul 460 430 460; Mul 461 460 445; Mul 462 372 450; Mul 463 429 453; Mul 464 436 456; Add 463 463 464;
  Add 462 462 463; Mul 463 437 417; Mul 464 444 459].
Definition casadi_f0_10 : list instruction := [
  Sub 463 463 464; Add 462 462 463; Mul 463 213 462; Mul 463 430 463; Mul 464 463 434; Mul 465 455 438;
  Add 466 464 465; Add 461 461 466; Sub 467 457 461; Mul 468 445 460; Mul 469 434 463; Add 457 469 457;
  Add 468 468 457; Sub 465 465 468; Add 467 467 465; Mul 465 447 442; Mul 470 439 420; Sub 471 465 470;
  Add 467 467 471; Sub 449 449 467; Add 395 395 449; Add 340 340 395; Add 286 286 340; Add 235 235 286;
  Mul 286 235 0; Mul 340 237 113; Sub 467 7 340; Mul 471 262 261; Add 472 471 90; Mul 473 316 315;
  Add 474 473 59; Mul 475 370 369; Mul 476 375 371; Add 475 475 476; Add 476 475 36; Mul 477 424 369;
  Mul 478 428 425; Add 477 477 478; Add 478 477 23; Add 479 476 478; Sub 480 391 445; Sq 481 480;
  Sub 482 381 434; Sq 483 482; Add 484 481 483; Mul 484 20 484; Add 479 479 484; Add 484 474 479;
  Lit 485 31733343102372813 17; Mul 486 485 391; Mul 487 50 445; Add 486 486 487; Sub 487 336 486; Sq 488 487;
  Mul 489 485 381; Mul 490 50 434; Add 489 489 490; Sub 490 325 489; Sq 491 490; Add 492 488 491;
  Mul 492 37 492; Add 484 484 492; Add 492 472 484; Lit 493 28659699114162585 17; Mul 494 493 336;
  Mul 495 83 486; Add 494 494 495; Sub 495 282 494; Sq 496 495; Mul 497 493 325; Mul 498 83 489;
  Add 497 497 498; Sub 498 271 497; Sq 499 498; Add 500 496 499; Mul 500 80 500; Add 492 492 500;
  Add 500 467 492; Lit 501 41661259613595214 17; Mul 502 501 282; Mul 503 104 494; Add 502 502 503;
  Sub 503 231 502; Sq 504 503; Mul 505 501 271; Mul 506 104 497; Add 505 505 506; Sub 506 225 505; Sq 507 506;
  Add 508 504 507; Mul 508 100 508; Add 500 500 508; Mul 508 219 216; Mul 509 227 215; Add 508 508 509;
  Mul 509 500 508; Add 510 389 443; Mul 511 20 480; Sub 512 384 438; Mul 513 511 512; Sub 510 510 513;
  Add 513 334 510; Mul 514 37 487; Mul 515 485 384; Mul 516 50 438; Add 515 515 516; Sub 516 329 515;
  Mul 517 514 516; Sub 513 513 517; Add 517 280 513; Mul 518 80 495; Mul 519 493 329; Mul 520 83 515;
  Add 519 519 520; Sub 520 275 519; Mul 521 518 520; Sub 517 517 521; Add 521 239 517; Mul 522 100 503;
  Mul 523 501 275; Mul 524 104 519; Add 523 523 524; Sub 524 242 523; Mul 525 522 524; Sub 521 521 525;
  Mul 525 113 221; Mul 526 114 218; Add 525 525 526; Mul 526 525 216; Mul 527 521 526; Add 528 374 426;
  Mul 529 20 482; Mul 530 529 512; Sub 528 528 530; Add 530 320 528; Mul 531 37 490; Mul 532 531 516;
  Sub 530 530 532; Add 532 266 530; Mul 533 80 498; Mul 534 533 520; Sub 532 532 534; Add 534 246 532;
  Mul 535 100 506; Mul 536 535 524; Sub 534 534 536; Mul 536 525 215; Mul 537 534 536; Add 527 527 537].
Definition casadi_f0_11 : list instruction := [
  Sub 509 509 527; Lit 527 21499798428597569 17; Mul 537 527 231; Mul 538 120 502; Add 537 537 538;
  Mul 538 527 242; Mul 539 120 523; Add 538 538 539; Mul 539 538 526; Mul 540 537 508; Add 539 539 540;
  Mul 540 214 216; Mul 541 525 540; Sub 539 539 541; Mul 539 141 539; Mul 542 537 539; Mul 543 527 225;
  Mul 544 120 505; Add 543 543 544; Mul 544 214 215; Mul 545 525 544; Mul 546 543 508; Mul 547 538 536;
  Add 546 546 547; Sub 546 545 546; Mul 546 141 546; Mul 547 543 546; Sub 542 542 547; Add 509 509 542;
  Mul 542 238 224; Mul 547 144 216; Mul 548 236 228; Add 547 547 548; Add 542 542 547; Mul 547 542 224;
  Mul 548 144 224; Lit 549 (-76072000000000032) 20; Mul 550 549 216; Add 548 548 550; Mul 550 548 216;
  Add 547 547 550; Add 550 547 7; Sq 551 231; Sq 552 242; Add 553 551 552; Mul 553 212 553; Add 553 550 553;
  Mul 554 249 553; Mul 555 542 220; Mul 556 548 215; Sub 555 555 556; Mul 556 241 225; Sub 556 555 556;
  Mul 557 244 556; Sub 554 554 557; Mul 557 242 223; Sq 558 225; Add 551 551 558; Mul 551 212 551;
  Add 551 467 551; Mul 559 551 249; Mul 560 213 525; Mul 561 243 560; Sub 559 559 561; Add 557 557 559;
  Sub 554 554 557; Lit 557 (-7844460000000001) 18; Sub 557 557 547; Add 557 557 340; Add 557 557 7;
  Mul 7 557 219; Mul 340 555 227; Add 7 7 340; Mul 340 239 525; Add 7 7 340; Mul 340 231 227; Mul 547 225 219;
  Sub 340 340 547; Mul 340 212 340; Mul 547 225 340; Mul 559 242 219; Mul 561 231 525; Sub 559 559 561;
  Sub 559 222 559; Mul 559 212 559; Mul 561 242 559; Add 547 547 561; Sub 7 7 547; Mul 7 213 7; Sub 554 554 7;
  Mul 547 260 265; Mul 561 127 216; Mul 562 263 273; Add 561 561 562; Add 547 547 561; Mul 561 547 265;
  Mul 562 127 265; Lit 563 50578999999999902 20; Mul 564 563 216; Mul 565 268 273; Add 564 564 565;
  Add 562 562 564; Mul 564 562 216; Add 561 561 564; Add 564 561 90; Sq 565 282; Sq 566 275; Add 567 565 566;
  Mul 567 269 567; Add 567 564 567; Mul 568 258 567; Mul 569 547 253; Mul 570 562 215; Sub 569 569 570;
  Mul 570 135 261; Sub 569 569 570; Mul 570 283 271; Sub 570 569 570; Mul 571 279 570; Sub 568 568 571;
  Mul 571 275 300; Mul 572 292 271; Add 571 571 572; Sq 572 271; Add 565 565 572; Mul 565 269 565;
  Add 565 472 565; Mul 573 565 258; Mul 574 213 296; Mul 575 284 574; Sub 573 573 575; Add 571 571 573;
  Sub 568 568 571; Lit 571 (-12468940000000001) 18; Sub 571 571 561; Sub 571 571 471; Add 571 571 90;
  Mul 90 571 255; Mul 471 569 278; Add 90 90 471; Mul 471 280 296; Add 90 90 471; Mul 471 282 278;
  Mul 561 271 255; Sub 471 471 561; Sub 471 290 471; Mul 471 269 471; Mul 561 271 471; Mul 573 275 255].
Definition casadi_f0_12 : list instruction := [
  Mul 575 282 296; Sub 573 573 575; Sub 573 299 573; Mul 573 269 573; Mul 575 275 573; Sub 561 561 575;
  Add 90 90 561; Mul 90 213 90; Sub 568 568 90; Mul 561 314 319; Mul 575 128 216; Mul 576 317 327;
  Add 575 575 576; Add 561 561 575; Mul 575 561 319; Mul 576 128 319; Lit 577 9511000000000003 20;
  Mul 578 577 216; Mul 579 322 327; Add 578 578 579; Add 576 576 578; Mul 578 576 216; Add 575 575 578;
  Add 578 575 59; Sq 579 336; Sq 580 329; Add 581 579 580; Mul 581 323 581; Add 581 578 581; Mul 582 312 581;
  Mul 583 561 304; Mul 584 576 215; Sub 583 583 584; Mul 584 131 315; Sub 583 583 584; Mul 584 337 325;
  Sub 584 583 584; Mul 585 333 584; Sub 582 582 585; Mul 585 329 354; Mul 586 346 325; Add 585 585 586;
  Sq 586 325; Add 579 579 586; Mul 579 323 579; Add 579 474 579; Mul 587 579 312; Mul 588 213 349;
  Mul 589 338 588; Sub 587 587 589; Add 585 585 587; Sub 582 582 585; Lit 585 57300000000000038 21;
  Sub 585 585 575; Sub 585 585 473; Add 585 585 59; Mul 59 585 309; Mul 473 583 332; Add 59 59 473;
  Mul 473 334 349; Add 59 59 473; Mul 473 336 332; Mul 575 325 309; Sub 473 473 575; Sub 473 344 473;
  Mul 473 323 473; Mul 575 325 473; Mul 587 329 309; Mul 589 336 349; Sub 587 587 589; Sub 587 353 587;
  Mul 587 323 587; Mul 589 329 587; Sub 575 575 589; Add 59 59 575; Mul 59 213 59; Sub 582 582 59;
  Mul 575 368 372; Mul 589 39 377; Mul 590 373 327; Add 589 589 590; Add 575 575 589; Mul 589 575 372;
  Mul 590 39 372; Mul 591 376 377; Add 590 590 591; Mul 591 590 377; Add 589 589 591; Add 591 589 36;
  Sq 592 391; Sq 593 384; Add 594 592 593; Mul 594 378 594; Add 594 591 594; Mul 595 366 594; Mul 596 575 358;
  Mul 597 590 364; Add 596 596 597; Mul 597 69 371; Add 596 596 597; Mul 597 392 381; Sub 597 596 597;
  Mul 598 388 597; Sub 595 595 598; Mul 598 384 409; Mul 599 401 381; Add 598 598 599; Sq 599 381;
  Add 592 592 599; Mul 592 378 592; Add 592 476 592; Mul 600 592 366; Mul 601 213 405; Mul 602 393 601;
  Sub 600 600 602; Add 598 598 600; Sub 595 595 598; Lit 598 51779999999999996 21; Sub 598 598 589;
  Sub 598 598 475; Add 598 598 36; Mul 36 598 363; Mul 475 596 387; Add 36 36 475; Mul 475 389 405;
  Add 36 36 475; Mul 475 391 387; Mul 589 381 363; Sub 475 475 589; Sub 475 399 475; Mul 475 378 475;
  Mul 589 381 475; Mul 600 384 363; Mul 602 391 405; Sub 600 600 602; Sub 600 408 600; Mul 600 378 600;
  Mul 602 384 600; Sub 589 589 602; Add 36 36 589; Mul 36 213 36; Sub 595 595 36; Mul 589 423 372;
  Mul 602 40 429; Mul 603 42 436; Add 602 602 603; Add 589 589 602; Mul 602 589 372; Mul 603 40 372].
Definition casadi_f0_13 : list instruction := [
  Mul 604 14 429; Mul 605 18 436; Add 604 604 605; Add 603 603 604; Mul 604 603 429; Add 602 602 604;
  Add 604 602 23; Sq 605 445; Sq 606 438; Add 607 605 606; Mul 607 430 607; Add 607 604 607; Mul 608 420 607;
  Mul 609 589 358; Mul 610 603 418; Add 609 609 610; Mul 610 43 425; Mul 611 431 369; Sub 610 610 611;
  Add 609 609 610; Mul 610 446 434; Sub 610 609 610; Mul 611 442 610; Sub 608 608 611; Mul 611 438 463;
  Mul 612 455 434; Add 611 611 612; Sq 612 434; Add 605 605 612; Mul 605 430 605; Add 605 478 605;
  Mul 613 605 420; Mul 614 213 459; Mul 615 447 614; Sub 613 613 615; Add 611 611 613; Sub 608 608 611;
  Sub 13 13 602; Sub 13 13 477; Add 13 13 23; Mul 23 13 417; Mul 477 609 441; Add 23 23 477; Mul 477 443 459;
  Add 23 23 477; Mul 477 445 441; Mul 602 434 417; Sub 477 477 602; Sub 477 451 477; Mul 477 430 477;
  Mul 602 434 477; Mul 611 438 417; Mul 613 445 459; Sub 611 611 613; Sub 611 462 611; Mul 611 430 611;
  Mul 613 438 611; Sub 602 602 613; Add 23 23 602; Mul 23 213 23; Sub 608 608 23; Add 595 595 608;
  Add 582 582 595; Add 568 568 582; Add 554 554 568; Mul 602 554 216; Mul 613 242 230; Mul 615 248 560;
  Mul 616 551 244; Sub 615 615 616; Sub 613 613 615; Mul 615 249 556; Add 558 558 552; Mul 558 212 558;
  Add 558 557 558; Mul 552 244 558; Sub 615 615 552; Add 613 613 615; Mul 615 555 219; Mul 552 550 227;
  Add 615 615 552; Mul 552 246 525; Add 615 615 552; Mul 552 231 340; Mul 616 225 525; Mul 617 242 227;
  Sub 616 616 617; Add 616 229 616; Mul 616 212 616; Mul 617 242 616; Sub 552 552 617; Add 615 615 552;
  Mul 615 213 615; Add 613 613 615; Mul 552 258 570; Add 572 572 566; Mul 572 269 572; Add 572 571 572;
  Mul 566 279 572; Sub 552 552 566; Mul 566 275 297; Mul 617 292 282; Add 566 566 617; Mul 617 276 574;
  Mul 618 565 279; Sub 617 617 618; Add 566 566 617; Sub 552 552 566; Mul 566 569 255; Mul 617 564 278;
  Add 566 566 617; Mul 617 266 296; Add 566 566 617; Mul 617 271 296; Mul 618 275 278; Sub 617 617 618;
  Sub 617 294 617; Mul 617 269 617; Mul 618 275 617; Mul 619 282 471; Sub 618 618 619; Add 566 566 618;
  Mul 566 213 566; Add 552 552 566; Mul 618 312 584; Add 586 586 580; Mul 586 323 586; Add 586 585 586;
  Mul 580 333 586; Sub 618 618 580; Mul 580 329 351; Mul 619 346 336; Add 580 580 619; Mul 619 330 588;
  Mul 620 579 333; Sub 619 619 620; Add 580 580 619; Sub 618 618 580; Mul 580 583 309; Mul 619 578 332;
  Add 580 580 619; Mul 619 320 349; Add 580 580 619; Mul 619 325 349; Mul 620 329 332; Sub 619 619 620;
  Sub 619 348 619; Mul 619 323 619; Mul 620 329 619].
Definition casadi_f0_14 : list instruction := [
  Mul 621 336 473; Sub 620 620 621; Add 580 580 620; Mul 580 213 580; Add 618 618 580; Mul 620 366 597;
  Add 599 599 593; Mul 599 378 599; Add 599 598 599; Mul 593 388 599; Sub 620 620 593; Mul 593 384 406;
  Mul 621 401 391; Add 593 593 621; Mul 621 385 601; Mul 622 592 388; Sub 621 621 622; Add 593 593 621;
  Sub 620 620 593; Mul 593 596 363; Mul 621 591 387; Add 593 593 621; Mul 621 374 405; Add 593 593 621;
  Mul 621 381 405; Mul 622 384 387; Sub 621 621 622; Sub 621 404 621; Mul 621 378 621; Mul 622 384 621;
  Mul 623 391 475; Sub 622 622 623; Add 593 593 622; Mul 593 213 593; Add 620 620 593; Mul 622 420 610;
  Add 612 612 606; Mul 612 430 612; Add 612 13 612; Mul 606 442 612; Sub 622 622 606; Mul 606 438 460;
  Mul 623 455 445; Add 606 606 623; Mul 623 439 614; Mul 624 605 442; Sub 623 623 624; Add 606 606 623;
  Sub 622 622 606; Mul 606 609 417; Mul 623 604 441; Add 606 606 623; Mul 623 426 459; Add 606 606 623;
  Mul 623 434 459; Mul 624 438 441; Sub 623 623 624; Sub 623 458 623; Mul 623 430 623; Mul 624 438 623;
  Mul 625 445 477; Sub 624 624 625; Add 606 606 624; Mul 606 213 606; Add 622 622 606; Add 620 620 622;
  Add 618 618 620; Add 552 552 618; Add 613 613 552; Mul 624 613 215; Sub 602 602 624; Mul 624 212 249;
  Mul 625 624 242; Mul 626 212 560; Mul 627 231 626; Add 627 223 627; Sub 625 625 627; Mul 627 213 559;
  Add 628 625 627; Mul 629 269 258; Mul 630 629 275; Mul 631 269 574; Mul 632 282 631; Add 632 300 632;
  Sub 630 630 632; Mul 632 213 573; Add 633 630 632; Mul 634 323 312; Mul 635 634 329; Mul 636 323 588;
  Mul 637 336 636; Add 637 354 637; Sub 635 635 637; Mul 637 213 587; Add 638 635 637; Mul 639 378 366;
  Mul 640 639 384; Mul 641 378 601; Mul 642 391 641; Add 642 409 642; Sub 640 640 642; Mul 642 213 600;
  Add 643 640 642; Mul 644 430 420; Mul 645 644 438; Mul 646 430 614; Mul 647 445 646; Add 647 463 647;
  Sub 645 645 647; Mul 647 213 611; Add 648 645 647; Add 643 643 648; Add 638 638 643; Add 633 633 638;
  Add 628 628 633; Mul 649 628 540; Mul 650 212 244; Mul 651 650 242; Mul 652 225 626; Add 652 230 652;
  Sub 651 651 652; Mul 652 213 616; Add 653 651 652; Mul 654 271 631; Sub 654 297 654; Mul 655 269 279;
  Mul 656 655 275; Add 654 654 656; Mul 656 213 617; Sub 657 654 656; Mul 658 325 636; Sub 658 351 658;
  Mul 659 323 333; Mul 660 659 329; Add 658 658 660; Mul 660 213 619; Sub 661 658 660; Mul 662 381 641;
  Sub 662 406 662; Mul 663 378 388; Mul 664 663 384; Add 662 662 664; Mul 664 213 621; Sub 665 662 664;
  Mul 666 434 646; Sub 666 460 666; Mul 667 430 442; Mul 668 667 438; Add 666 666 668].
Definition casadi_f0_15 : list instruction := [
  Mul 668 213 623; Sub 669 666 668; Add 665 665 669; Add 661 661 665; Add 657 657 661; Add 653 653 657;
  Mul 670 653 544; Add 649 649 670; Sub 602 602 649; Add 509 509 602; Mul 602 509 1; Add 286 286 602;
  Mul 602 296 216; Mul 649 517 602; Mul 670 296 215; Mul 671 532 670; Add 649 649 671; Mul 671 255 216;
  Mul 672 278 215; Add 671 671 672; Mul 672 492 671; Sub 649 649 672; Lit 672 28340607100000001 16;
  Mul 673 290 215; Mul 674 274 216; Mul 675 296 674; Mul 676 281 216; Mul 677 270 215; Add 676 676 677;
  Mul 677 255 676; Add 675 675 677; Add 673 673 675; Mul 675 523 602; Mul 677 502 671; Add 675 675 677;
  Sub 675 673 675; Mul 675 672 675; Mul 677 502 675; Mul 678 290 216; Mul 679 278 676; Mul 680 274 215;
  Mul 681 296 680; Add 679 679 681; Sub 678 678 679; Mul 679 505 671; Mul 681 523 670; Add 679 679 681;
  Add 679 678 679; Mul 679 672 679; Mul 681 505 679; Sub 677 677 681; Add 649 649 677; Mul 677 633 674;
  Mul 681 657 680; Mul 682 631 275; Mul 683 282 629; Mul 684 271 655; Mul 685 275 631; Add 686 684 685;
  Add 683 683 686; Sub 687 682 683; Mul 688 629 282; Mul 689 655 271; Add 682 689 682; Add 688 688 682;
  Sub 685 685 688; Sub 687 687 685; Mul 685 636 329; Mul 690 336 634; Mul 691 325 659; Mul 692 329 636;
  Add 693 691 692; Add 690 690 693; Sub 694 685 690; Mul 695 634 336; Mul 696 659 325; Add 685 696 685;
  Add 695 695 685; Sub 692 692 695; Sub 694 694 692; Mul 692 641 384; Mul 697 391 639; Mul 698 381 663;
  Mul 699 384 641; Add 700 698 699; Add 697 697 700; Sub 701 692 697; Mul 702 639 391; Mul 703 663 381;
  Add 692 703 692; Add 702 702 692; Sub 699 699 702; Sub 701 701 699; Mul 699 646 438; Mul 704 445 644;
  Mul 705 434 667; Mul 706 438 646; Add 707 705 706; Add 704 704 707; Sub 708 699 704; Mul 709 644 445;
  Mul 710 667 434; Add 699 710 699; Add 709 709 699; Sub 706 706 709; Sub 708 708 706; Add 701 701 708;
  Add 694 694 701; Add 687 687 694; Mul 706 687 676; Sub 681 681 706; Add 677 677 681; Mul 681 552 215;
  Mul 706 568 216; Sub 681 681 706; Add 677 677 681; Add 649 649 677; Mul 677 649 2; Add 286 286 677;
  Mul 677 309 216; Mul 681 332 215; Add 677 677 681; Mul 681 484 677; Mul 706 349 216; Mul 711 513 706;
  Mul 712 349 215; Mul 713 530 712; Add 711 711 713; Sub 681 681 711; Mul 711 519 706; Mul 713 494 677;
  Add 711 711 713; Mul 713 344 215; Mul 714 328 216; Mul 715 349 714; Mul 716 335 216; Mul 717 324 215;
  Add 716 716 717; Mul 717 309 716; Add 715 715 717; Add 713 713 715; Sub 711 711 713; Mul 711 156 711;
  Mul 715 494 711; Mul 717 332 716; Mul 718 328 215; Mul 719 349 718; Add 717 717 719; Mul 719 344 216].
Definition casadi_f0_16 : list instruction := [
  Sub 717 717 719; Mul 719 497 677; Mul 720 519 712; Add 719 719 720; Sub 719 717 719; Mul 719 156 719;
  Mul 720 497 719; Sub 715 715 720; Add 681 681 715; Mul 715 694 716; Mul 720 661 718; Sub 715 715 720;
  Mul 720 638 714; Sub 715 715 720; Mul 720 582 216; Mul 721 618 215; Sub 720 720 721; Add 715 715 720;
  Add 681 681 715; Mul 715 681 3; Add 286 286 715; Mul 715 405 327; Mul 720 387 318; Sub 715 715 720;
  Mul 720 510 715; Mul 721 363 318; Mul 722 405 310; Sub 721 721 722; Mul 722 528 721; Add 720 720 722;
  Mul 722 387 310; Mul 723 363 327; Sub 722 722 723; Mul 723 479 722; Add 720 720 723; Lit 723 117950866 8;
  Mul 724 404 318; Mul 725 399 310; Sub 724 724 725; Mul 725 383 327; Mul 726 379 318; Sub 725 725 726;
  Mul 726 405 725; Mul 727 379 310; Mul 728 390 327; Sub 727 727 728; Mul 728 363 727; Sub 726 726 728;
  Add 724 724 726; Mul 726 515 715; Mul 728 486 722; Sub 726 726 728; Sub 726 724 726; Mul 726 723 726;
  Mul 728 486 726; Mul 729 399 327; Mul 730 408 318; Sub 729 729 730; Mul 730 387 727; Mul 731 390 318;
  Mul 732 383 310; Sub 731 731 732; Mul 732 405 731; Sub 730 730 732; Add 729 729 730; Mul 730 489 722;
  Mul 732 515 721; Sub 730 730 732; Sub 730 729 730; Mul 730 723 730; Mul 732 489 730; Sub 728 728 732;
  Add 720 720 728; Mul 728 643 725; Mul 732 665 731; Mul 733 701 727; Add 732 732 733; Add 728 728 732;
  Mul 732 620 310; Mul 733 595 327; Mul 734 395 318; Add 733 733 734; Add 732 732 733; Sub 728 728 732;
  Add 720 720 728; Mul 728 720 4; Add 286 286 728; Mul 728 459 372; Mul 732 441 369; Sub 728 728 732;
  Mul 732 443 728; Mul 733 417 369; Mul 734 459 358; Sub 733 733 734; Mul 734 426 733; Add 732 732 734;
  Mul 734 441 358; Mul 735 417 372; Sub 734 734 735; Mul 735 478 734; Add 732 732 735; Mul 735 458 369;
  Mul 736 451 358; Sub 735 735 736; Mul 736 437 372; Mul 737 432 369; Sub 736 736 737; Mul 737 459 736;
  Mul 738 432 358; Mul 739 444 372; Sub 738 738 739; Mul 739 417 738; Sub 737 737 739; Add 735 735 737;
  Mul 737 438 728; Mul 739 445 734; Sub 737 737 739; Sub 735 735 737; Mul 735 430 735; Mul 737 445 735;
  Mul 739 451 372; Mul 740 462 369; Sub 739 739 740; Mul 740 441 738; Mul 741 444 369; Mul 742 437 358;
  Sub 741 741 742; Mul 742 459 741; Sub 740 740 742; Add 739 739 740; Mul 740 434 734; Mul 742 438 733;
  Sub 740 740 742; Sub 739 739 740; Mul 739 430 739; Mul 740 434 739; Sub 737 737 740; Add 732 732 737;
  Mul 737 648 736; Mul 740 669 741; Mul 742 708 738; Add 740 740 742; Add 737 737 740; Mul 740 622 358;
  Mul 742 608 372; Mul 743 449 369; Add 742 742 743; Add 740 740 742; Sub 737 737 740].
Definition casadi_f0_17 : list instruction := [
  Add 732 732 737; Mul 737 732 5; Add 286 286 737; Sub 211 211 286; Lit 286 98100000000000005 16;
  Mul 737 286 113; Mul 740 212 737; Mul 740 107 740; Mul 742 9 737; Mul 743 286 114; Mul 744 8 743;
  Add 742 742 744; Mul 744 269 742; Mul 745 81 744; Mul 746 9 743; Mul 747 8 737; Sub 746 746 747;
  Mul 747 53 746; Mul 748 66 742; Add 747 747 748; Mul 748 323 747; Mul 749 47 748; Mul 750 378 747;
  Mul 751 24 750; Mul 752 66 746; Mul 753 53 742; Sub 752 752 753; Mul 753 35 752; Mul 754 378 753;
  Mul 755 31 754; Sub 751 751 755; Mul 755 15 753; Mul 756 16 747; Add 755 755 756; Mul 755 430 755;
  Mul 756 26 755; Mul 757 16 753; Mul 758 15 747; Sub 757 757 758; Mul 757 430 757; Mul 758 28 757;
  Sub 756 756 758; Mul 758 16 755; Mul 759 15 757; Sub 758 758 759; Mul 759 25 758; Mul 760 16 757;
  Mul 761 15 755; Add 760 760 761; Mul 761 32 760; Sub 759 759 761; Add 759 756 759; Add 751 751 759;
  Mul 759 19 751; Mul 761 19 752; Mul 762 378 761; Mul 763 31 762; Mul 764 380 750; Sub 763 763 764;
  Mul 761 430 761; Mul 764 28 761; Mul 765 433 755; Sub 764 764 765; Mul 765 16 764; Mul 766 433 757;
  Mul 767 26 761; Sub 766 766 767; Mul 767 15 766; Add 765 765 767; Mul 767 32 761; Mul 768 198 758;
  Sub 767 767 768; Add 765 765 767; Add 763 763 765; Mul 765 35 763; Add 759 759 765; Add 750 750 758;
  Mul 758 48 750; Add 765 754 760; Mul 767 19 765; Add 768 762 761; Mul 769 35 768; Sub 767 767 769;
  Mul 769 55 767; Sub 758 758 769; Add 759 759 758; Add 749 749 759; Mul 759 66 749; Mul 754 380 754;
  Mul 762 24 762; Sub 754 754 762; Mul 762 16 766; Mul 758 15 764; Sub 762 762 758; Mul 760 198 760;
  Mul 761 25 761; Sub 760 760 761; Add 762 762 760; Add 754 754 762; Mul 762 62 767; Mul 760 19 768;
  Mul 761 35 765; Add 760 760 761; Mul 761 48 760; Sub 762 762 761; Add 762 754 762; Mul 761 323 752;
  Mul 758 47 761; Sub 762 762 758; Mul 758 53 762; Add 759 759 758; Mul 758 86 767; Sub 759 759 758;
  Add 745 745 759; Mul 759 9 745; Mul 758 66 762; Mul 769 53 749; Sub 758 758 769; Mul 769 91 767;
  Add 758 758 769; Mul 769 269 746; Mul 770 81 769; Sub 758 758 770; Mul 770 8 758; Add 759 759 770;
  Mul 767 102 767; Add 770 761 760; Mul 771 66 770; Add 772 748 750; Mul 773 53 772; Add 771 771 773;
  Add 773 769 771; Mul 774 8 773; Mul 775 66 772; Mul 776 53 770; Sub 775 775 776; Add 776 744 775;
  Mul 777 9 776; Sub 774 774 777; Mul 774 108 774; Sub 767 767 774; Add 759 759 767; Add 740 740 759;
  Mul 759 114 740; Mul 767 212 743; Mul 774 107 767; Mul 777 8 745; Mul 778 9 758; Sub 777 777 778].
Definition casadi_f0_18 : list instruction := [
  Mul 778 9 773; Mul 779 8 776; Add 778 778 779; Mul 779 108 778; Add 777 777 779; Add 774 774 777;
  Mul 777 113 774; Sub 759 759 777; Sub 211 211 759; Mul 759 210 211; Div 777 143 92; Arg 779 3 1;
  Mul 780 560 243; Mul 781 249 551; Sub 780 780 781; Mul 781 223 242; Mul 782 556 244; Mul 783 553 249;
  Sub 782 782 783; Add 781 781 782; Sub 780 780 781; Add 780 780 7; Mul 7 574 284; Mul 781 258 565; Sub 7 7 781;
  Mul 781 271 292; Mul 782 300 275; Add 781 781 782; Mul 782 570 279; Mul 783 567 258; Sub 782 782 783;
  Add 781 781 782; Sub 7 7 781; Add 7 7 90; Mul 90 588 338; Mul 781 312 579; Sub 90 90 781; Mul 781 325 346;
  Mul 782 354 329; Add 781 781 782; Mul 782 584 333; Mul 783 581 312; Sub 782 782 783; Add 781 781 782;
  Sub 90 90 781; Add 90 90 59; Mul 59 601 393; Mul 781 366 592; Sub 59 59 781; Mul 781 381 401; Mul 782 409 384;
  Add 781 781 782; Mul 782 597 388; Mul 783 594 366; Sub 782 782 783; Add 781 781 782; Sub 59 59 781;
  Add 59 59 36; Mul 36 614 447; Mul 781 420 605; Sub 36 36 781; Mul 781 434 455; Mul 782 463 438;
  Add 781 781 782; Mul 782 610 442; Mul 783 607 420; Sub 782 782 783; Add 781 781 782; Sub 36 36 781;
  Add 36 36 23; Add 59 59 36; Add 90 90 59; Add 7 7 90; Add 780 780 7; Mul 23 216 780; Mul 781 230 242;
  Mul 782 558 244; Mul 783 556 249; Sub 782 782 783; Sub 781 781 782; Mul 782 244 551; Mul 783 560 248;
  Sub 782 782 783; Add 781 781 782; Sub 781 781 615; Mul 615 279 565; Mul 782 574 276; Sub 615 615 782;
  Mul 782 282 292; Mul 783 297 275; Add 782 782 783; Mul 783 572 279; Mul 784 570 258; Sub 783 783 784;
  Add 782 782 783; Sub 615 615 782; Sub 615 615 566; Mul 566 333 579; Mul 782 588 330; Sub 566 566 782;
  Mul 782 336 346; Mul 783 351 329; Add 782 782 783; Mul 783 586 333; Mul 784 584 312; Sub 783 783 784;
  Add 782 782 783; Sub 566 566 782; Sub 566 566 580; Mul 580 388 592; Mul 782 601 385; Sub 580 580 782;
  Mul 782 391 401; Mul 783 406 384; Add 782 782 783; Mul 783 599 388; Mul 784 597 366; Sub 783 783 784;
  Add 782 782 783; Sub 580 580 782; Sub 580 580 593; Mul 593 442 605; Mul 782 614 439; Sub 593 593 782;
  Mul 782 445 455; Mul 783 460 438; Add 782 782 783; Mul 783 612 442; Mul 784 610 420; Sub 783 783 784;
  Add 782 782 783; Sub 593 593 782; Sub 593 593 606; Add 580 580 593; Add 566 566 580; Add 615 615 566;
  Add 781 781 615; Mul 606 215 781; Sub 23 23 606; Sub 625 625 627; Sub 630 630 632; Sub 635 635 637;
  Sub 640 640 642; Sub 645 645 647; Add 640 640 645; Add 635 635 640; Add 630 630 635; Add 625 625 630;
  Mul 627 540 625].
Definition casadi_f0_19 : list instruction := [
  Sub 651 651 652; Add 654 654 656; Add 658 658 660; Add 662 662 664; Add 666 666 668; Add 662 662 666;
  Add 658 658 662; Add 654 654 658; Add 651 651 654; Mul 652 544 651; Add 627 627 652; Sub 23 23 627;
  Mul 627 23 0; Mul 652 534 508; Add 606 596 609; Mul 782 511 482; Sub 606 606 782; Add 782 583 606;
  Mul 783 514 490; Sub 782 782 783; Add 783 569 782; Mul 784 518 498; Sub 783 783 784; Add 784 555 783;
  Mul 785 522 506; Sub 784 784 785; Mul 785 784 526; Add 786 591 604; Sq 787 512; Add 481 481 787;
  Mul 481 20 481; Add 786 786 481; Add 481 578 786; Sq 788 516; Add 488 488 788; Mul 488 37 488;
  Add 481 481 488; Add 488 564 481; Sq 789 520; Add 496 496 789; Mul 496 80 496; Add 488 488 496;
  Add 496 550 488; Sq 790 524; Add 504 504 790; Mul 504 100 504; Add 496 496 504; Mul 504 496 536;
  Add 785 785 504; Sub 652 652 785; Mul 785 538 546; Mul 504 222 215; Mul 791 229 216; Sub 504 504 791;
  Mul 791 227 540; Mul 792 219 544; Sub 791 791 792; Add 504 504 791; Mul 791 543 526; Mul 792 537 536;
  Sub 791 791 792; Sub 791 504 791; Mul 791 141 791; Mul 792 537 791; Sub 785 785 792; Add 652 652 785;
  Mul 785 560 556; Sub 251 785 251; Sub 232 233 232; Sub 234 226 234; Add 232 232 234; Mul 234 556 560;
  Sub 250 250 234; Add 232 232 250; Sub 251 251 232; Mul 232 574 570; Sub 277 232 277; Sub 306 306 298;
  Sub 301 301 305; Add 306 306 301; Mul 301 570 574; Sub 307 307 301; Add 306 306 307; Sub 277 277 306;
  Mul 306 588 584; Sub 331 306 331; Sub 360 360 352; Sub 355 355 359; Add 360 360 355; Mul 355 584 588;
  Sub 361 361 355; Add 360 360 361; Sub 331 331 360; Mul 360 601 597; Sub 386 360 386; Sub 415 415 407;
  Sub 410 410 414; Add 415 415 410; Mul 410 597 601; Sub 416 416 410; Add 415 415 416; Sub 386 386 415;
  Mul 415 614 610; Sub 440 415 440; Sub 469 469 461; Sub 464 464 468; Add 469 469 464; Mul 464 610 614;
  Sub 470 470 464; Add 469 469 470; Sub 440 440 469; Add 386 386 440; Add 331 331 386; Add 277 277 331;
  Add 251 251 277; Mul 469 251 216; Mul 470 225 230; Mul 468 223 231; Sub 470 470 468; Mul 468 553 560;
  Mul 461 248 244; Sub 468 468 461; Sub 470 470 468; Mul 468 560 558; Mul 461 249 243; Sub 468 468 461;
  Add 470 470 468; Mul 468 239 219; Mul 461 246 227; Add 468 468 461; Mul 461 467 525; Add 468 468 461;
  Mul 461 231 559; Mul 416 225 616; Add 461 461 416; Add 468 468 461; Mul 468 213 468; Sub 470 470 468;
  Mul 461 574 572; Mul 416 258 284; Sub 461 461 416; Mul 416 271 297; Mul 414 300 282; Add 416 416 414;
  Mul 414 567 574; Mul 407 276 279; Sub 414 414 407; Add 416 416 414; Sub 461 461 416].
Definition casadi_f0_20 : list instruction := [
  Mul 416 280 255; Mul 414 266 278; Add 416 416 414; Mul 414 472 296; Add 416 416 414; Mul 414 282 573;
  Mul 407 271 617; Sub 414 414 407; Add 416 416 414; Mul 416 213 416; Sub 461 461 416; Mul 414 588 586;
  Mul 407 312 338; Sub 414 414 407; Mul 407 325 351; Mul 361 354 336; Add 407 407 361; Mul 361 581 588;
  Mul 359 330 333; Sub 361 361 359; Add 407 407 361; Sub 414 414 407; Mul 407 334 309; Mul 361 320 332;
  Add 407 407 361; Mul 361 474 349; Add 407 407 361; Mul 361 336 587; Mul 359 325 619; Sub 361 361 359;
  Add 407 407 361; Mul 407 213 407; Sub 414 414 407; Mul 361 601 599; Mul 359 366 393; Sub 361 361 359;
  Mul 359 381 406; Mul 352 409 391; Add 359 359 352; Mul 352 594 601; Mul 307 385 388; Sub 352 352 307;
  Add 359 359 352; Sub 361 361 359; Mul 359 389 363; Mul 352 374 387; Add 359 359 352; Mul 352 476 405;
  Add 359 359 352; Mul 352 391 600; Mul 307 381 621; Sub 352 352 307; Add 359 359 352; Mul 359 213 359;
  Sub 361 361 359; Mul 352 614 612; Mul 307 420 447; Sub 352 352 307; Mul 307 434 460; Mul 305 463 445;
  Add 307 307 305; Mul 305 607 614; Mul 298 439 442; Sub 305 305 298; Add 307 307 305; Sub 352 352 307;
  Mul 307 443 417; Mul 305 426 441; Add 307 307 305; Mul 305 478 459; Add 307 307 305; Mul 305 445 611;
  Mul 298 434 623; Sub 305 305 298; Add 307 307 305; Mul 307 213 307; Sub 352 352 307; Add 361 361 352;
  Add 414 414 361; Add 461 461 414; Add 470 470 461; Mul 305 470 215; Sub 469 469 305; Mul 305 624 225;
  Mul 298 231 650; Sub 305 305 298; Mul 298 213 340; Add 250 305 298; Mul 792 282 655; Sub 792 292 792;
  Mul 793 629 271; Add 792 792 793; Mul 793 213 471; Sub 794 792 793; Mul 795 336 659; Sub 795 346 795;
  Mul 796 634 325; Add 795 795 796; Mul 796 213 473; Sub 797 795 796; Mul 798 391 663; Sub 798 401 798;
  Mul 799 639 381; Add 798 798 799; Mul 799 213 475; Sub 800 798 799; Mul 801 445 667; Sub 801 455 801;
  Mul 802 644 434; Add 801 801 802; Mul 802 213 477; Sub 803 801 802; Add 800 800 803; Add 797 797 800;
  Add 794 794 797; Add 250 250 794; Mul 804 250 540; Mul 805 650 225; Mul 806 231 624; Mul 807 225 650;
  Mul 808 242 626; Add 808 807 808; Add 806 806 808; Sub 806 805 806; Mul 809 624 231; Mul 810 626 242;
  Add 805 805 810; Add 809 809 805; Sub 807 807 809; Sub 806 806 807; Sub 689 689 683; Sub 684 684 688;
  Sub 689 689 684; Sub 696 696 690; Sub 691 691 695; Sub 696 696 691; Sub 703 703 697; Sub 698 698 702;
  Sub 703 703 698; Sub 710 710 704; Sub 705 705 709; Sub 710 710 705; Add 703 703 710; Add 696 696 703;
  Add 689 689 696; Add 806 806 689; Mul 705 806 544; Add 804 804 705; Sub 469 469 804].
Definition casadi_f0_21 : list instruction := [
  Add 652 652 469; Mul 469 216 652; Mul 804 521 508; Add 705 598 13; Add 483 483 787; Mul 483 20 483;
  Add 705 705 483; Add 483 585 705; Add 491 491 788; Mul 491 37 491; Add 483 483 491; Add 491 571 483;
  Add 499 499 789; Mul 499 80 499; Add 491 491 499; Add 499 557 491; Add 507 507 790; Mul 507 100 507;
  Add 499 499 507; Mul 507 499 526; Mul 790 784 536; Add 507 507 790; Sub 804 804 507; Mul 507 543 791;
  Mul 790 538 539; Sub 507 507 790; Add 804 804 507; Mul 507 230 225; Mul 790 231 223; Sub 507 507 790;
  Mul 790 243 249; Mul 789 558 560; Sub 790 790 789; Sub 507 507 790; Mul 790 244 248; Mul 789 560 553;
  Sub 790 790 789; Add 507 507 790; Add 507 507 468; Mul 468 279 276; Mul 790 574 567; Sub 468 468 790;
  Mul 790 282 300; Mul 789 297 271; Add 790 790 789; Mul 789 284 258; Mul 788 572 574; Sub 789 789 788;
  Add 790 790 789; Sub 468 468 790; Add 468 468 416; Mul 416 333 330; Mul 790 588 581; Sub 416 416 790;
  Mul 790 336 354; Mul 789 351 325; Add 790 790 789; Mul 789 338 312; Mul 788 586 588; Sub 789 789 788;
  Add 790 790 789; Sub 416 416 790; Add 416 416 407; Mul 407 388 385; Mul 790 601 594; Sub 407 407 790;
  Mul 790 391 409; Mul 789 406 381; Add 790 790 789; Mul 789 393 366; Mul 788 599 601; Sub 789 789 788;
  Add 790 790 789; Sub 407 407 790; Add 407 407 359; Mul 359 442 439; Mul 790 614 607; Sub 359 359 790;
  Mul 790 445 463; Mul 789 460 434; Add 790 790 789; Mul 789 447 420; Mul 788 612 614; Sub 789 789 788;
  Add 790 790 789; Sub 359 359 790; Add 359 359 307; Add 407 407 359; Add 416 416 407; Add 468 468 416;
  Add 507 507 468; Mul 307 507 216; Add 226 226 233; Sub 234 234 245; Sub 226 226 234; Sub 252 252 785;
  Add 226 226 252; Add 303 303 293; Sub 301 301 302; Sub 303 303 301; Sub 285 285 232; Add 303 303 285;
  Add 357 357 347; Sub 355 355 356; Sub 357 357 355; Sub 339 339 306; Add 357 357 339; Add 412 412 403;
  Sub 410 410 411; Sub 412 412 410; Sub 394 394 360; Add 412 412 394; Add 466 466 457; Sub 464 464 465;
  Sub 466 466 464; Sub 448 448 415; Add 466 466 448; Add 412 412 466; Add 357 357 412; Add 303 303 357;
  Add 226 226 303; Mul 448 226 215; Sub 307 307 448; Sub 805 805 808; Sub 682 682 686; Sub 685 685 693;
  Sub 692 692 700; Sub 699 699 707; Add 692 692 699; Add 685 685 692; Add 682 682 685; Add 805 805 682;
  Mul 707 805 540; Mul 700 650 231; Mul 693 225 624; Sub 700 700 693; Sub 693 700 298; Mul 686 655 282;
  Mul 808 271 629; Add 808 292 808; Sub 686 686 808; Add 808 686 793; Mul 448 659 336; Mul 415 325 634;
  Add 415 346 415; Sub 448 448 415; Add 415 448 796; Mul 464 663 391; Mul 465 381 639].
Definition casadi_f0_22 : list instruction := [
  Add 465 401 465; Sub 464 464 465; Add 465 464 799; Mul 457 667 445; Mul 394 434 644; Add 394 455 394;
  Sub 457 457 394; Add 394 457 802; Add 465 465 394; Add 415 415 465; Add 808 808 415; Add 693 693 808;
  Mul 360 693 544; Add 707 707 360; Sub 307 307 707; Add 804 804 307; Mul 307 215 804; Sub 469 469 307;
  Sub 305 305 298; Add 792 792 793; Add 795 795 796; Add 798 798 799; Add 801 801 802; Add 798 798 801;
  Add 795 795 798; Add 792 792 795; Add 305 305 792; Mul 307 305 216; Mul 707 805 215; Sub 307 307 707;
  Add 307 546 307; Mul 707 540 307; Mul 360 806 216; Add 700 700 298; Sub 686 686 793; Sub 448 448 796;
  Sub 464 464 799; Sub 457 457 802; Add 464 464 457; Add 448 448 464; Add 686 686 448; Add 700 700 686;
  Mul 802 700 215; Sub 360 360 802; Add 360 539 360; Mul 802 544 360; Add 707 707 802; Sub 469 469 707;
  Mul 707 469 1; Add 627 627 707; Mul 707 783 602; Mul 802 488 670; Add 707 707 802; Mul 802 532 671;
  Sub 707 707 802; Mul 802 523 679; Mul 799 255 680; Mul 796 278 674; Sub 799 799 796; Mul 796 294 216;
  Mul 793 299 215; Add 796 796 793; Sub 799 799 796; Mul 796 502 670; Mul 793 505 602; Sub 796 796 793;
  Sub 796 799 796; Mul 796 672 796; Mul 793 502 796; Sub 802 802 793; Add 707 707 802; Mul 802 794 674;
  Mul 793 689 680; Mul 298 631 271; Mul 410 275 655; Add 410 297 410; Sub 298 298 410; Add 410 298 656;
  Mul 411 636 325; Mul 403 329 659; Add 403 351 403; Sub 411 411 403; Add 403 411 660; Mul 339 641 381;
  Mul 306 384 663; Add 306 406 306; Sub 339 339 306; Add 306 339 664; Mul 355 646 434; Mul 356 438 667;
  Add 356 460 356; Sub 355 355 356; Add 356 355 668; Add 306 306 356; Add 403 403 306; Add 410 410 403;
  Mul 347 410 676; Sub 793 793 347; Add 802 802 793; Mul 793 461 215; Mul 347 277 216; Sub 793 793 347;
  Add 802 802 793; Add 707 707 802; Mul 802 216 707; Mul 793 491 602; Mul 347 783 670; Add 793 793 347;
  Mul 347 517 671; Sub 793 793 347; Mul 347 505 796; Mul 285 523 675; Sub 347 347 285; Add 793 793 347;
  Mul 347 682 674; Mul 285 808 680; Mul 232 275 629; Sub 232 300 232; Mul 301 631 282; Add 232 232 301;
  Sub 301 232 632; Mul 302 329 634; Sub 302 354 302; Mul 293 636 336; Add 302 302 293; Sub 293 302 637;
  Mul 252 384 639; Sub 252 409 252; Mul 785 641 391; Add 252 252 785; Sub 785 252 642; Mul 234 438 644;
  Sub 234 463 234; Mul 245 646 445; Add 234 234 245; Sub 245 234 647; Add 785 785 245; Add 293 293 785;
  Add 301 301 293; Mul 233 301 676; Sub 285 285 233; Add 347 347 285; Mul 285 303 215; Mul 233 468 216;
  Sub 285 285 233; Add 347 347 285; Add 793 793 347; Mul 347 215 793; Sub 285 802 347].
Definition casadi_f0_23 : list instruction := [
  Mul 233 682 215; Mul 790 792 216; Sub 233 233 790; Add 233 679 233; Mul 790 540 233; Mul 789 686 215;
  Mul 788 689 216; Sub 789 789 788; Add 789 675 789; Mul 788 544 789; Add 790 790 788; Sub 285 285 790;
  Mul 790 285 2; Add 627 627 790; Mul 790 530 677; Mul 788 782 706; Mul 787 481 712; Add 788 788 787;
  Sub 790 790 788; Mul 788 519 719; Mul 787 348 216; Mul 709 353 215; Add 787 787 709; Mul 709 332 714;
  Mul 704 309 718; Sub 709 709 704; Add 787 787 709; Mul 709 497 706; Mul 704 494 712; Sub 709 709 704;
  Sub 709 787 709; Mul 709 156 709; Mul 704 494 709; Sub 788 788 704; Add 790 790 788; Mul 788 403 716;
  Mul 704 696 718; Sub 788 788 704; Mul 704 797 714; Sub 788 788 704; Mul 704 331 216; Mul 698 414 215;
  Sub 704 704 698; Add 788 788 704; Add 790 790 788; Mul 788 216 790; Mul 704 513 677; Mul 698 483 706;
  Mul 702 782 712; Add 698 698 702; Sub 704 704 698; Mul 698 497 709; Mul 702 519 711; Sub 698 698 702;
  Add 704 704 698; Mul 698 293 716; Mul 702 415 718; Sub 698 698 702; Mul 702 685 714; Sub 698 698 702;
  Mul 702 416 216; Mul 697 357 215; Sub 702 702 697; Add 698 698 702; Add 704 704 698; Mul 698 215 704;
  Sub 702 788 698; Mul 697 795 216; Mul 691 685 215; Sub 697 697 691; Add 697 719 697; Mul 691 540 697;
  Mul 695 696 216; Mul 690 448 215; Sub 695 695 690; Add 695 711 695; Mul 690 544 695; Add 691 691 690;
  Sub 691 702 691; Mul 690 691 3; Add 627 627 690; Mul 690 606 715; Mul 684 786 721; Add 690 690 684;
  Mul 684 528 722; Add 690 690 684; Mul 684 515 730; Mul 688 408 310; Mul 683 404 327; Sub 688 688 683;
  Mul 683 363 731; Mul 807 387 725; Sub 683 683 807; Add 688 688 683; Mul 683 486 721; Mul 807 489 715;
  Sub 683 683 807; Sub 683 688 683; Mul 683 723 683; Mul 807 486 683; Sub 684 684 807; Add 690 690 684;
  Mul 684 800 725; Mul 807 703 731; Mul 809 306 727; Add 807 807 809; Add 684 684 807; Mul 807 361 310;
  Mul 809 386 327; Mul 810 59 318; Add 809 809 810; Add 807 807 809; Sub 684 684 807; Add 690 690 684;
  Mul 684 216 690; Mul 807 705 715; Mul 809 606 721; Add 807 807 809; Mul 809 510 722; Add 807 807 809;
  Mul 809 489 683; Mul 810 515 726; Sub 809 809 810; Add 807 807 809; Mul 809 692 725; Mul 810 465 731;
  Mul 811 785 727; Add 810 810 811; Add 809 809 810; Mul 810 412 310; Mul 811 407 327; Mul 812 580 318;
  Add 811 811 812; Add 810 810 811; Sub 809 809 810; Add 807 807 809; Mul 809 215 807; Sub 810 684 809;
  Mul 811 692 310; Mul 812 798 327; Mul 813 640 318; Add 812 812 813; Add 811 811 812; Sub 811 730 811;
  Mul 812 540 811; Mul 813 464 310; Mul 814 703 327; Mul 815 662 318; Add 814 814 815].
Definition casadi_f0_24 : list instruction := [
  Add 813 813 814; Sub 813 726 813; Mul 814 544 813; Add 812 812 814; Sub 812 810 812; Mul 814 812 4;
  Add 627 627 814; Mul 814 609 728; Mul 815 604 733; Add 814 814 815; Mul 815 426 734; Add 814 814 815;
  Mul 815 438 739; Mul 816 462 358; Mul 817 458 372; Sub 816 816 817; Mul 817 417 741; Mul 818 441 736;
  Sub 817 817 818; Add 816 816 817; Mul 817 445 733; Mul 818 434 728; Sub 817 817 818; Sub 816 816 817;
  Mul 816 430 816; Mul 817 445 816; Sub 815 815 817; Add 814 814 815; Mul 815 803 736; Mul 817 710 741;
  Mul 818 356 738; Add 817 817 818; Add 815 815 817; Mul 817 352 358; Mul 818 440 372; Mul 819 36 369;
  Add 818 818 819; Add 817 817 818; Sub 815 815 817; Add 814 814 815; Mul 815 216 814; Mul 817 13 728;
  Mul 818 609 733; Add 817 817 818; Mul 818 443 734; Add 817 817 818; Mul 818 434 816; Mul 819 438 735;
  Sub 818 818 819; Add 817 817 818; Mul 818 699 736; Mul 819 394 741; Mul 820 245 738; Add 819 819 820;
  Add 818 818 819; Mul 819 466 358; Mul 820 359 372; Mul 821 593 369; Add 820 820 821; Add 819 819 820;
  Sub 818 818 819; Add 817 817 818; Mul 818 215 817; Sub 819 815 818; Mul 820 699 358; Mul 821 801 372;
  Mul 822 645 369; Add 821 821 822; Add 820 820 821; Sub 820 739 820; Mul 821 540 820; Mul 822 457 358;
  Mul 823 710 372; Mul 824 666 369; Add 823 823 824; Add 822 822 823; Sub 822 735 822; Mul 823 544 822;
  Add 821 821 823; Sub 821 819 821; Mul 823 821 5; Add 627 627 823; Sub 779 779 627; Mul 769 85 769;
  Mul 744 79 744; Sub 769 769 744; Mul 761 54 761; Mul 748 61 748; Sub 761 761 748; Mul 748 19 763;
  Mul 744 35 751; Sub 748 748 744; Mul 760 55 760; Mul 750 62 750; Sub 760 760 750; Add 748 748 760;
  Add 761 761 748; Mul 771 86 771; Mul 775 91 775; Sub 771 771 775; Add 771 761 771; Add 769 769 771;
  Mul 778 102 778; Sub 778 769 778; Mul 767 101 767; Sub 778 778 767; Sub 779 779 778; Mul 778 777 779;
  Add 759 759 778; Div 778 154 92; Arg 767 3 2; Mul 771 674 630; Mul 775 680 654; Mul 748 676 687;
  Sub 775 775 748; Add 771 771 775; Mul 775 215 615; Mul 748 216 7; Sub 775 775 748; Add 771 771 775;
  Mul 775 771 0; Mul 748 523 216; Sub 748 674 748; Mul 748 672 748; Mul 760 748 545; Mul 750 502 216;
  Mul 744 505 215; Add 750 750 744; Sub 750 750 676; Mul 750 672 750; Mul 744 750 504; Mul 627 523 215;
  Sub 627 680 627; Mul 627 672 627; Mul 823 627 541; Sub 744 744 823; Add 760 760 744; Mul 744 517 215;
  Mul 823 532 216; Sub 744 744 823; Mul 823 502 627; Mul 824 505 748; Sub 823 823 824; Add 744 744 823;
  Mul 823 744 508; Mul 824 783 215; Mul 825 488 216; Sub 824 824 825; Mul 825 523 748].
Definition casadi_f0_25 : list instruction := [
  Mul 826 502 750; Sub 825 825 826; Add 824 824 825; Mul 825 824 536; Sub 823 823 825; Mul 825 491 215;
  Mul 826 783 216; Sub 825 825 826; Mul 826 505 750; Mul 827 523 627; Sub 826 826 827; Add 825 825 826;
  Mul 826 825 526; Sub 823 823 826; Add 760 760 823; Mul 823 674 792; Mul 826 680 689; Sub 298 298 656;
  Sub 411 411 660; Sub 339 339 664; Sub 355 355 668; Add 339 339 355; Add 411 411 339; Add 298 298 411;
  Mul 668 676 298; Sub 826 826 668; Add 823 823 826; Mul 826 215 468; Mul 668 216 277; Sub 826 826 668;
  Add 823 823 826; Mul 826 823 216; Mul 668 674 682; Mul 664 680 686; Add 232 232 632; Add 302 302 637;
  Add 252 252 642; Add 234 234 647; Add 252 252 234; Add 302 302 252; Add 232 232 302; Mul 647 676 232;
  Sub 664 664 647; Add 668 668 664; Mul 664 215 303; Mul 647 216 461; Sub 664 664 647; Add 668 668 664;
  Mul 664 668 215; Sub 826 826 664; Mul 664 215 682; Mul 647 216 794; Sub 664 664 647; Mul 647 664 540;
  Mul 642 215 808; Mul 637 216 689; Sub 642 642 637; Mul 637 642 544; Add 647 647 637; Sub 826 826 647;
  Add 760 760 826; Mul 826 760 1; Add 775 775 826; Mul 826 674 233; Mul 647 680 789; Mul 637 232 215;
  Mul 632 298 216; Sub 637 637 632; Add 637 796 637; Mul 632 676 637; Sub 647 647 632; Add 826 826 647;
  Sub 347 347 802; Add 826 826 347; Mul 347 826 2; Add 775 775 347; Mul 347 674 697; Mul 802 680 695;
  Mul 647 411 216; Mul 632 302 215; Sub 647 647 632; Add 647 709 647; Mul 632 676 647; Sub 802 802 632;
  Add 347 347 802; Sub 698 698 788; Add 347 347 698; Mul 698 347 3; Add 775 775 698; Mul 698 674 811;
  Mul 788 680 813; Mul 802 252 310; Mul 632 339 327; Mul 660 701 318; Add 632 632 660; Add 802 802 632;
  Sub 802 683 802; Mul 632 676 802; Sub 788 788 632; Add 698 698 788; Sub 809 809 684; Add 698 698 809;
  Mul 809 698 4; Add 775 775 809; Mul 809 674 820; Mul 684 680 822; Mul 788 234 358; Mul 632 355 372;
  Mul 660 708 369; Add 632 632 660; Add 788 788 632; Sub 788 816 788; Mul 632 676 788; Sub 684 684 632;
  Add 809 809 684; Sub 818 818 815; Add 809 809 818; Mul 818 809 5; Add 775 775 818; Sub 767 767 775;
  Add 767 767 769; Mul 769 778 767; Sub 759 759 769; Div 769 168 92; Arg 775 3 3; Mul 818 716 694;
  Mul 815 718 658; Sub 818 818 815; Mul 815 714 635; Sub 818 818 815; Mul 815 216 90; Mul 684 215 566;
  Sub 815 815 684; Add 818 818 815; Mul 815 818 0; Mul 684 519 216; Sub 684 684 714; Mul 684 156 684;
  Mul 632 684 545; Mul 660 494 216; Mul 656 497 215; Add 660 660 656; Sub 660 716 660; Mul 660 156 660;
  Mul 656 660 504; Mul 827 519 215; Sub 827 827 718; Mul 827 156 827; Mul 828 827 541].
Definition casadi_f0_26 : list instruction := [
  Sub 656 656 828; Add 632 632 656; Mul 656 530 216; Mul 828 513 215; Sub 656 656 828; Mul 828 494 827;
  Mul 829 497 684; Sub 828 828 829; Add 656 656 828; Mul 828 656 508; Mul 829 481 216; Mul 830 782 215;
  Sub 829 829 830; Mul 830 519 684; Mul 831 494 660; Sub 830 830 831; Add 829 829 830; Mul 830 829 536;
  Sub 828 828 830; Mul 830 782 216; Mul 831 483 215; Sub 830 830 831; Mul 831 497 660; Mul 832 519 827;
  Sub 831 831 832; Add 830 830 831; Mul 831 830 526; Sub 828 828 831; Add 632 632 828; Mul 828 716 411;
  Mul 831 718 696; Sub 828 828 831; Mul 831 714 795; Sub 828 828 831; Mul 831 216 331; Mul 832 215 416;
  Sub 831 831 832; Add 828 828 831; Mul 831 828 216; Mul 832 716 302; Mul 833 718 448; Sub 832 832 833;
  Mul 833 714 685; Sub 832 832 833; Mul 833 216 414; Mul 834 215 357; Sub 833 833 834; Add 832 832 833;
  Mul 833 832 215; Sub 834 831 833; Mul 835 216 797; Mul 836 215 685; Sub 835 835 836; Mul 836 835 540;
  Mul 837 216 696; Mul 838 215 415; Sub 837 837 838; Mul 838 837 544; Add 836 836 838; Sub 834 834 836;
  Add 632 632 834; Mul 834 632 1; Add 815 815 834; Mul 834 684 678; Mul 836 827 673; Mul 838 660 799;
  Add 836 836 838; Add 834 834 836; Mul 836 830 602; Mul 838 829 670; Mul 839 656 671; Sub 838 838 839;
  Add 836 836 838; Add 834 834 836; Mul 836 835 674; Mul 838 837 680; Mul 839 216 403; Mul 840 215 293;
  Sub 839 839 840; Mul 840 839 676; Sub 838 838 840; Add 836 836 838; Sub 833 833 831; Add 836 836 833;
  Add 834 834 836; Mul 836 834 2; Add 815 815 836; Mul 836 716 647; Mul 833 718 695; Sub 836 836 833;
  Mul 833 714 697; Sub 836 836 833; Add 836 836 702; Mul 702 836 3; Add 815 815 702; Mul 702 716 802;
  Mul 833 718 813; Sub 702 702 833; Mul 833 714 811; Sub 702 702 833; Add 702 702 810; Mul 810 702 4;
  Add 815 815 810; Mul 810 716 788; Mul 833 718 822; Sub 810 810 833; Mul 833 714 820; Sub 810 810 833;
  Add 810 810 819; Mul 819 810 5; Add 815 815 819; Sub 775 775 815; Sub 775 775 761; Mul 761 769 775;
  Add 759 759 761; Div 761 175 92; Arg 815 3 4; Mul 819 725 640; Mul 833 731 662; Mul 831 727 701;
  Add 833 833 831; Add 819 819 833; Mul 833 310 580; Mul 831 327 59; Mul 838 318 395; Add 831 831 838;
  Add 833 833 831; Sub 819 819 833; Mul 833 819 0; Mul 831 515 327; Mul 838 489 318; Sub 831 831 838;
  Sub 831 725 831; Mul 831 723 831; Mul 838 831 545; Mul 840 489 310; Mul 841 486 327; Sub 840 840 841;
  Sub 840 727 840; Mul 840 723 840; Mul 841 840 504; Mul 842 486 318; Mul 843 515 310; Sub 842 842 843;
  Sub 842 731 842; Mul 842 723 842; Mul 843 842 541; Sub 841 841 843; Add 838 838 841].
Definition casadi_f0_27 : list instruction := [
  Mul 841 486 842; Mul 843 489 831; Sub 841 841 843; Mul 843 510 310; Mul 844 528 327; Add 843 843 844;
  Mul 844 479 318; Add 843 843 844; Sub 841 841 843; Mul 843 841 508; Mul 844 515 831; Mul 845 486 840;
  Sub 844 844 845; Mul 845 606 310; Mul 846 786 327; Add 845 845 846; Mul 846 528 318; Add 845 845 846;
  Sub 844 844 845; Mul 845 844 536; Sub 843 843 845; Mul 845 489 840; Mul 846 515 842; Sub 845 845 846;
  Mul 846 705 310; Mul 847 606 327; Add 846 846 847; Mul 847 510 318; Add 846 846 847; Sub 845 845 846;
  Mul 846 845 526; Sub 843 843 846; Add 838 838 843; Mul 843 310 692; Mul 846 327 800; Mul 847 318 643;
  Add 846 846 847; Add 843 843 846; Mul 846 843 540; Mul 847 310 465; Mul 848 327 703; Mul 849 318 665;
  Add 848 848 849; Add 847 847 848; Mul 848 847 544; Add 846 846 848; Mul 848 725 798; Mul 849 731 703;
  Mul 850 727 339; Add 849 849 850; Add 848 848 849; Mul 849 310 407; Mul 850 327 386; Mul 851 318 595;
  Add 850 850 851; Add 849 849 850; Sub 848 848 849; Mul 849 848 216; Mul 850 725 692; Mul 851 731 464;
  Mul 852 727 252; Add 851 851 852; Add 850 850 851; Mul 851 310 412; Mul 852 327 361; Mul 853 318 620;
  Add 852 852 853; Add 851 851 852; Sub 850 850 851; Mul 851 850 215; Sub 852 849 851; Add 846 846 852;
  Add 838 838 846; Mul 846 838 1; Add 833 833 846; Mul 846 831 678; Mul 853 842 673; Mul 854 840 799;
  Add 853 853 854; Add 846 846 853; Mul 853 845 602; Mul 854 844 670; Mul 855 841 671; Sub 854 854 855;
  Add 853 853 854; Add 846 846 853; Mul 853 310 785; Mul 854 327 306; Mul 855 318 701; Add 854 854 855;
  Add 853 853 854; Mul 854 853 676; Mul 855 847 680; Sub 854 854 855; Mul 855 843 674; Sub 854 854 855;
  Sub 851 851 849; Add 854 854 851; Add 846 846 854; Mul 854 846 2; Add 833 833 854; Mul 854 831 717;
  Mul 851 840 787; Mul 849 842 713; Sub 851 851 849; Add 854 854 851; Mul 851 841 677; Mul 849 844 712;
  Sub 851 851 849; Mul 849 845 706; Sub 851 851 849; Add 854 854 851; Mul 851 843 714; Mul 849 847 718;
  Mul 855 853 716; Sub 849 849 855; Add 851 851 849; Add 851 851 852; Add 854 854 851; Mul 851 854 3;
  Add 833 833 851; Mul 851 725 811; Mul 852 731 813; Mul 849 727 802; Add 852 852 849; Add 851 851 852;
  Mul 852 310 807; Mul 849 327 690; Mul 855 318 720; Add 849 849 855; Add 852 852 849; Sub 851 851 852;
  Mul 852 851 4; Add 833 833 852; Mul 852 725 820; Mul 849 731 822; Mul 855 727 788; Add 849 849 855;
  Add 852 852 849; Mul 849 310 817; Mul 855 327 814; Mul 856 318 732; Add 855 855 856; Add 849 849 855;
  Sub 852 852 849; Mul 849 852 5; Add 833 833 849; Sub 815 815 833; Add 815 815 754].
Definition casadi_f0_28 : list instruction := [
  Mul 754 761 815; Add 759 759 754; Div 754 200 92; Arg 833 3 5; Mul 849 736 645; Mul 855 741 666;
  Mul 856 738 708; Add 855 855 856; Add 849 849 855; Mul 855 358 593; Mul 856 372 36; Mul 857 369 449;
  Add 856 856 857; Add 855 855 856; Sub 849 849 855; Mul 855 849 0; Mul 856 438 372; Mul 857 434 369;
  Sub 856 856 857; Sub 856 736 856; Mul 856 430 856; Mul 857 856 545; Mul 858 434 358; Mul 859 445 372;
  Sub 858 858 859; Sub 858 738 858; Mul 858 430 858; Mul 859 858 504; Mul 860 445 369; Mul 861 438 358;
  Sub 860 860 861; Sub 860 741 860; Mul 860 430 860; Mul 861 860 541; Sub 859 859 861; Add 857 857 859;
  Mul 859 445 860; Mul 861 434 856; Sub 859 859 861; Mul 861 443 358; Mul 862 426 372; Add 861 861 862;
  Mul 862 478 369; Add 861 861 862; Sub 859 859 861; Mul 861 859 508; Mul 862 438 856; Mul 863 445 858;
  Sub 862 862 863; Mul 863 609 358; Mul 864 604 372; Add 863 863 864; Mul 864 426 369; Add 863 863 864;
  Sub 862 862 863; Mul 863 862 536; Sub 861 861 863; Mul 863 434 858; Mul 864 438 860; Sub 863 863 864;
  Mul 864 13 358; Mul 865 609 372; Add 864 864 865; Mul 865 443 369; Add 864 864 865; Sub 863 863 864;
  Mul 864 863 526; Sub 861 861 864; Add 857 857 861; Mul 861 358 699; Mul 864 372 803; Mul 865 369 648;
  Add 864 864 865; Add 861 861 864; Mul 864 861 540; Mul 865 358 394; Mul 866 372 710; Mul 867 369 669;
  Add 866 866 867; Add 865 865 866; Mul 866 865 544; Add 864 864 866; Mul 866 736 801; Mul 867 741 710;
  Mul 868 738 355; Add 867 867 868; Add 866 866 867; Mul 867 358 359; Mul 868 372 440; Mul 869 369 608;
  Add 868 868 869; Add 867 867 868; Sub 866 866 867; Mul 867 866 216; Mul 868 736 699; Mul 869 741 457;
  Mul 870 738 234; Add 869 869 870; Add 868 868 869; Mul 869 358 466; Mul 870 372 352; Mul 871 369 622;
  Add 870 870 871; Add 869 869 870; Sub 868 868 869; Mul 869 868 215; Sub 870 867 869; Add 864 864 870;
  Add 857 857 864; Mul 864 857 1; Add 855 855 864; Mul 864 856 678; Mul 871 860 673; Mul 872 858 799;
  Add 871 871 872; Add 864 864 871; Mul 871 863 602; Mul 872 862 670; Mul 873 859 671; Sub 872 872 873;
  Add 871 871 872; Add 864 864 871; Mul 871 358 245; Mul 872 372 356; Mul 873 369 708; Add 872 872 873;
  Add 871 871 872; Mul 872 871 676; Mul 873 865 680; Sub 872 872 873; Mul 873 861 674; Sub 872 872 873;
  Sub 869 869 867; Add 872 872 869; Add 864 864 872; Mul 872 864 2; Add 855 855 872; Mul 872 856 717;
  Mul 869 858 787; Mul 867 860 713; Sub 869 869 867; Add 872 872 869; Mul 869 859 677; Mul 867 862 712;
  Sub 869 869 867; Mul 867 863 706; Sub 869 869 867; Add 872 872 869; Mul 869 861 714].
Definition casadi_f0_29 : list instruction := [
  Mul 867 865 718; Mul 873 871 716; Sub 867 867 873; Add 869 869 867; Add 869 869 870; Add 872 872 869;
  Mul 869 872 3; Add 855 855 869; Mul 869 856 729; Mul 870 860 724; Mul 867 858 688; Add 870 870 867;
  Add 869 869 870; Mul 870 863 715; Mul 867 862 721; Mul 873 859 722; Add 867 867 873; Add 870 870 867;
  Add 869 869 870; Mul 870 861 725; Mul 867 865 731; Mul 873 871 727; Add 867 867 873; Add 870 870 867;
  Mul 867 868 310; Mul 873 866 327; Mul 874 849 318; Add 873 873 874; Add 867 867 873; Add 870 870 867;
  Sub 869 869 870; Mul 870 869 4; Add 855 855 870; Mul 870 736 820; Mul 867 741 822; Mul 873 738 788;
  Add 867 867 873; Add 870 870 867; Mul 867 358 817; Mul 873 372 814; Mul 874 369 732; Add 873 873 874;
  Add 867 867 873; Sub 870 870 867; Mul 867 870 5; Add 855 855 867; Sub 833 833 855; Add 833 833 756;
  Mul 756 754 833; Add 759 759 756; Mul 756 200 210; Mul 855 19 196; Mul 867 35 189; Sub 855 855 867;
  Mul 867 55 203; Mul 873 62 191; Sub 867 867 873; Add 855 855 867; Mul 867 86 206; Mul 873 91 208;
  Sub 867 867 873; Add 867 855 867; Mul 209 102 209; Sub 209 867 209; Mul 873 209 777; Add 756 756 873;
  Mul 873 867 778; Add 756 756 873; Mul 873 855 769; Add 756 756 873; Mul 873 201 761; Sub 756 756 873;
  Lit 873 56493592345755437 20; Mul 874 873 754; Add 756 756 874; Mul 874 756 210; Sub 874 200 874;
  Mul 875 143 210; Lit 876 73415599999999996 19; Lit 877 1494858 8; Lit 878 71027000000000004 20; Add 45 45 22;
  Add 878 878 45; Add 65 65 58; Mul 65 37 65; Add 878 878 65; Add 877 877 878; Add 94 94 89; Mul 94 80 94;
  Add 877 877 94; Add 876 876 877; Add 106 106 98; Mul 106 100 106; Add 876 876 106; Sq 106 60; Sq 98 121;
  Add 106 106 98; Mul 106 141 106; Add 876 876 106; Mul 106 876 777; Add 875 875 106; Mul 106 105 148;
  Mul 98 103 151; Add 106 106 98; Sub 106 106 877; Mul 153 102 153; Sub 153 106 153; Mul 877 153 778;
  Sub 875 875 877; Sq 877 88; Sq 98 87; Add 877 877 98; Mul 877 156 877; Add 878 878 877; Mul 877 86 165;
  Mul 98 91 169; Sub 877 877 98; Add 877 878 877; Mul 171 102 171; Sub 171 877 171; Mul 98 171 769;
  Add 875 875 98; Mul 98 35 180; Mul 94 19 182; Sub 98 98 94; Mul 94 55 178; Add 98 98 94; Mul 94 86 185;
  Mul 89 91 187; Add 94 94 89; Add 94 98 94; Mul 188 102 188; Sub 188 94 188; Mul 89 188 761; Add 875 875 89;
  Mul 89 209 754; Add 875 875 89; Mul 89 875 210; Sub 89 143 89; Sq 65 89; Mul 58 875 777; Sub 58 876 58;
  Sq 45 58; Add 65 65 45; Mul 45 875 778; Add 45 153 45; Sq 22 45; Add 65 65 22; Mul 22 875 769].
Definition casadi_f0_30 : list instruction := [
  Sub 22 171 22; Sq 879 22; Add 65 65 879; Mul 879 875 761; Sub 879 188 879; Sq 880 879; Add 65 65 880;
  Mul 880 875 754; Sub 880 209 880; Sq 881 880; Add 65 65 881; Sqrt 65 65; Div 881 89 65; Mul 882 874 881;
  Mul 883 756 777; Sub 883 209 883; Div 884 58 65; Mul 885 883 884; Add 882 882 885; Mul 885 756 778;
  Sub 885 885 867; Div 886 45 65; Mul 887 885 886; Add 882 882 887; Mul 887 756 769; Sub 887 855 887;
  Div 888 22 65; Mul 889 887 888; Add 882 882 889; Mul 889 756 761; Add 889 201 889; Div 890 879 65;
  Mul 891 889 890; Sub 882 882 891; Mul 891 756 754; Sub 891 873 891; Div 892 880 65; Mul 893 891 892;
  Add 882 882 893; Mul 893 882 881; Sub 893 874 893; Mul 894 882 884; Sub 894 883 894; Mul 895 153 777;
  Mul 896 154 210; Sub 895 895 896; Mul 896 106 778; Add 895 895 896; Mul 896 877 769; Sub 895 895 896;
  Mul 896 94 761; Sub 895 895 896; Mul 896 867 754; Sub 895 895 896; Mul 896 895 777; Sub 896 153 896;
  Mul 897 896 884; Mul 898 895 210; Add 898 154 898; Mul 899 898 881; Sub 897 897 899; Mul 899 895 778;
  Sub 899 899 106; Mul 900 899 886; Add 897 897 900; Mul 900 895 769; Add 900 877 900; Mul 901 900 888;
  Sub 897 897 901; Mul 901 895 761; Add 901 94 901; Mul 902 901 890; Sub 897 897 902; Mul 902 895 754;
  Add 902 867 902; Mul 903 902 892; Sub 897 897 903; Mul 903 897 884; Sub 903 896 903; Mul 904 897 881;
  Add 904 898 904; Sq 905 904; Sq 906 903; Add 905 905 906; Mul 906 897 886; Sub 906 899 906; Sq 907 906;
  Add 905 905 907; Mul 907 897 888; Add 907 900 907; Sq 908 907; Add 905 905 908; Mul 908 897 890;
  Add 908 901 908; Sq 909 908; Add 905 905 909; Mul 909 897 892; Add 909 902 909; Sq 910 909; Add 905 905 910;
  Sqrt 905 905; Div 910 903 905; Mul 911 894 910; Div 912 904 905; Mul 913 893 912; Sub 911 911 913;
  Mul 913 882 886; Sub 913 885 913; Div 914 906 905; Mul 915 913 914; Add 911 911 915; Mul 915 882 888;
  Sub 915 887 915; Div 916 907 905; Mul 917 915 916; Sub 911 911 917; Mul 917 882 890; Add 917 889 917;
  Div 918 908 905; Mul 919 917 918; Add 911 911 919; Mul 919 882 892; Sub 919 891 919; Div 920 909 905;
  Mul 921 919 920; Sub 911 911 921; Mul 921 911 912; Add 921 893 921; Mul 922 168 210; Mul 923 171 777;
  Add 922 922 923; Mul 923 877 778; Add 922 922 923; Mul 923 878 769; Add 922 922 923; Mul 923 98 761;
  Add 922 922 923; Mul 923 855 754; Add 922 922 923; Mul 923 922 210; Sub 923 168 923; Mul 924 923 881;
  Mul 925 922 777; Sub 925 171 925; Mul 926 925 884; Add 924 924 926; Mul 926 922 778; Sub 926 926 877;
  Mul 927 926 886].
Definition casadi_f0_31 : list instruction := [
  Add 924 924 927; Mul 927 922 769; Sub 927 878 927; Mul 928 927 888; Add 924 924 928; Mul 928 922 761;
  Sub 928 98 928; Mul 929 928 890; Add 924 924 929; Mul 929 922 754; Sub 929 855 929; Mul 930 929 892;
  Add 924 924 930; Mul 930 924 881; Sub 930 923 930; Mul 931 924 884; Sub 931 925 931; Mul 932 931 910;
  Mul 933 930 912; Sub 932 932 933; Mul 933 924 886; Sub 933 926 933; Mul 934 933 914; Add 932 932 934;
  Mul 934 924 888; Sub 934 927 934; Mul 935 934 916; Sub 932 932 935; Mul 935 924 890; Sub 935 928 935;
  Mul 936 935 918; Sub 932 932 936; Mul 936 924 892; Sub 936 929 936; Mul 937 936 920; Sub 932 932 937;
  Mul 937 932 912; Add 937 930 937; Sq 938 937; Mul 939 932 910; Sub 939 931 939; Sq 940 939; Add 938 938 940;
  Mul 940 932 914; Sub 940 933 940; Sq 941 940; Add 938 938 941; Mul 941 932 916; Add 941 934 941; Sq 942 941;
  Add 938 938 942; Mul 942 932 918; Add 942 935 942; Sq 943 942; Add 938 938 943; Mul 943 932 920;
  Add 943 936 943; Sq 944 943; Add 938 938 944; Sqrt 938 938; Div 944 937 938; Mul 945 921 944; Mul 946 911 910;
  Sub 946 894 946; Div 947 939 938; Mul 948 946 947; Add 945 945 948; Mul 948 911 914; Sub 948 913 948;
  Div 949 940 938; Mul 950 948 949; Add 945 945 950; Mul 950 911 916; Add 950 915 950; Div 951 941 938;
  Mul 952 950 951; Add 945 945 952; Mul 952 911 918; Sub 952 952 917; Div 953 942 938; Mul 954 952 953;
  Add 945 945 954; Mul 954 911 920; Add 954 919 954; Div 955 943 938; Mul 956 954 955; Add 945 945 956;
  Mul 956 945 944; Sub 956 921 956; Mul 957 175 210; Mul 958 188 777; Add 957 957 958; Mul 958 94 778;
  Add 957 957 958; Mul 958 98 769; Add 957 957 958; Mul 958 172 761; Sub 957 957 958; Mul 958 201 754;
  Sub 957 957 958; Mul 958 957 210; Sub 958 175 958; Mul 959 958 881; Mul 960 957 777; Sub 960 188 960;
  Mul 961 960 884; Add 959 959 961; Mul 961 957 778; Sub 961 961 94; Mul 962 961 886; Add 959 959 962;
  Mul 962 957 769; Sub 962 98 962; Mul 963 962 888; Add 959 959 963; Mul 963 957 761; Add 963 172 963;
  Mul 964 963 890; Sub 959 959 964; Mul 964 957 754; Add 964 201 964; Mul 965 964 892; Sub 959 959 965;
  Mul 965 959 881; Sub 965 958 965; Mul 966 959 884; Sub 966 960 966; Mul 967 966 910; Mul 968 965 912;
  Sub 967 967 968; Mul 968 959 886; Sub 968 961 968; Mul 969 968 914; Add 967 967 969; Mul 969 959 888;
  Sub 969 962 969; Mul 970 969 916; Sub 967 967 970; Mul 970 959 890; Add 970 963 970; Mul 971 970 918;
  Add 967 967 971; Mul 971 959 892; Add 971 964 971; Mul 972 971 920; Add 967 967 972; Mul 972 967 912;
  Add 972 965 972; Mul 973 972 944].
Definition casadi_f0_32 : list instruction := [
  Mul 974 967 910; Sub 974 966 974; Mul 975 974 947; Add 973 973 975; Mul 975 967 914; Sub 975 968 975;
  Mul 976 975 949; Add 973 973 976; Mul 976 967 916; Add 976 969 976; Mul 977 976 951; Add 973 973 977;
  Mul 977 967 918; Sub 977 977 970; Mul 978 977 953; Add 973 973 978; Mul 978 967 920; Sub 978 978 971;
  Mul 979 978 955; Add 973 973 979; Mul 979 973 944; Sub 979 972 979; Sq 980 979; Mul 981 973 947;
  Sub 981 974 981; Sq 982 981; Add 980 980 982; Mul 982 973 949; Sub 982 975 982; Sq 983 982; Add 980 980 983;
  Mul 983 973 951; Sub 983 976 983; Sq 984 983; Add 980 980 984; Mul 984 973 953; Sub 984 977 984; Sq 985 984;
  Add 980 980 985; Mul 985 973 955; Sub 985 978 985; Sq 986 985; Add 980 980 986; Sqrt 980 980; Div 986 979 980;
  Mul 987 956 986; Mul 988 945 947; Sub 988 946 988; Div 989 981 980; Mul 990 988 989; Add 987 987 990;
  Mul 990 945 949; Sub 990 948 990; Div 991 982 980; Mul 992 990 991; Add 987 987 992; Mul 992 945 951;
  Sub 992 950 992; Div 993 983 980; Mul 994 992 993; Add 987 987 994; Mul 994 945 953; Sub 994 952 994;
  Div 995 984 980; Mul 996 994 995; Add 987 987 996; Mul 996 945 955; Sub 996 954 996; Div 997 985 980;
  Mul 998 996 997; Add 987 987 998; Mul 998 987 986; Sub 998 956 998; Sq 999 998; Mul 1000 987 989;
  Sub 1000 988 1000; Sq 1001 1000; Add 999 999 1001; Mul 1001 987 991; Sub 1001 990 1001; Sq 1002 1001;
  Add 999 999 1002; Mul 1002 987 993; Sub 1002 992 1002; Sq 1003 1002; Add 999 999 1003; Mul 1003 987 995;
  Sub 1003 994 1003; Sq 1004 1003; Add 999 999 1004; Mul 1004 987 997; Sub 1004 996 1004; Sq 1005 1004;
  Add 999 999 1005; Sqrt 999 999; Div 1005 998 999; Mul 1006 1005 211; Div 1007 1000 999; Mul 1008 1007 779;
  Add 1006 1006 1008; Div 1008 1001 999; Mul 1009 1008 767; Add 1006 1006 1009; Div 1009 1002 999;
  Mul 1010 1009 775; Add 1006 1006 1010; Div 1010 1003 999; Mul 1011 1010 815; Add 1006 1006 1011;
  Div 1011 1004 999; Mul 1012 1011 833; Add 1006 1006 1012; Div 1006 1006 999; Mul 1012 756 1006;
  Sub 759 759 1012; Mul 1012 986 211; Mul 1013 989 779; Add 1012 1012 1013; Mul 1013 991 767;
  Add 1012 1012 1013; Mul 1013 993 775; Add 1012 1012 1013; Mul 1013 995 815; Add 1012 1012 1013;
  Mul 1013 997 833; Add 1012 1012 1013; Mul 1013 987 1006; Sub 1012 1012 1013; Div 1012 1012 980;
  Mul 1013 957 1012; Sub 759 759 1013; Mul 1013 944 211; Mul 1014 947 779; Add 1013 1013 1014; Mul 1014 949 767;
  Add 1013 1013 1014; Mul 1014 951 775; Add 1013 1013 1014; Mul 1014 953 815; Add 1013 1013 1014;
  Mul 1014 955 833; Add 1013 1013 1014; Mul 1014 945 1006; Sub 1013 1013 1014; Mul 1014 973 1012;
  Sub 1013 1013 1014; Div 1013 1013 938; Mul 1014 922 1013; Sub 759 759 1014].
Definition casadi_f0_33 : list instruction := [
  Mul 1014 910 779; Mul 1015 912 211; Sub 1014 1014 1015; Mul 1015 914 767; Add 1014 1014 1015;
  Mul 1015 916 775; Sub 1014 1014 1015; Mul 1015 918 815; Sub 1014 1014 1015; Mul 1015 920 833;
  Sub 1014 1014 1015; Mul 1015 911 1006; Sub 1014 1014 1015; Mul 1015 967 1012; Sub 1014 1014 1015;
  Mul 1015 932 1013; Sub 1014 1014 1015; Div 1014 1014 905; Mul 1015 895 1014; Sub 759 759 1015;
  Mul 1015 881 211; Mul 1016 884 779; Add 1015 1015 1016; Mul 1016 886 767; Add 1015 1015 1016;
  Mul 1016 888 775; Add 1015 1015 1016; Mul 1016 890 815; Add 1015 1015 1016; Mul 1016 892 833;
  Add 1015 1015 1016; Mul 1016 882 1006; Sub 1015 1015 1016; Mul 1016 959 1012; Sub 1015 1015 1016;
  Mul 1016 924 1013; Sub 1015 1015 1016; Mul 1016 897 1014; Sub 1015 1015 1016; Div 1015 1015 65;
  Mul 1016 875 1015; Sub 759 759 1016; Div 759 759 92; Out 0 6 759; Out 0 7 1015; Out 0 8 1014; Out 0 9 1013;
  Out 0 10 1012; Out 0 11 1006; Arg 1016 1 6; Out 1 0 1016; Arg 1017 1 7; Out 1 1 1017; Arg 1018 1 8;
  Out 1 2 1018; Arg 1019 1 9; Out 1 3 1019; Arg 1020 1 10; Out 1 4 1020; Arg 1021 1 11; Out 1 5 1021;
  Arg 1022 1 2; Mul 1023 8 1022; Mul 1024 10 1023; Arg 1025 1 5; Mul 1026 16 1025; Mul 1027 21 1026;
  Mul 1025 15 1025; Mul 1028 18 1025; Mul 1029 14 1026; Add 1028 1028 1029; Mul 1029 15 1028;
  Sub 1027 1027 1029; Mul 1029 18 1026; Mul 1030 14 1025; Sub 1029 1029 1030; Mul 1029 16 1029;
  Mul 1030 17 1025; Sub 1029 1029 1030; Sub 1030 1027 1029; Add 1031 34 34; Mul 1032 28 1025; Mul 1033 26 1026;
  Add 1032 1032 1033; Mul 1033 1031 1032; Add 29 29 29; Mul 1034 28 1026; Mul 1035 26 1025; Sub 1034 1034 1035;
  Mul 1035 29 1034; Sub 1036 1033 1035; Mul 1036 20 1036; Add 1030 1030 1036; Mul 1035 20 1035;
  Add 1027 1027 1035; Add 1030 1030 1027; Mul 1033 20 1033; Add 1029 1029 1033; Add 1029 1029 1027;
  Add 1033 1030 1029; Mul 1029 19 1029; Arg 1035 1 4; Mul 1036 35 1035; Mul 1037 30 1036; Sub 1029 1029 1037;
  Mul 1035 19 1035; Mul 1037 41 1035; Mul 1038 42 1026; Mul 1039 40 1025; Sub 1038 1038 1039; Mul 1039 43 1026;
  Sub 1038 1038 1039; Mul 1039 44 1034; Add 1038 1038 1039; Mul 1039 35 1038; Add 1037 1037 1039;
  Sub 1029 1029 1037; Mul 1037 19 1029; Mul 1039 38 1036; Sub 1037 1037 1039; Mul 1038 19 1038;
  Mul 1039 41 1036; Sub 1038 1038 1039; Mul 1039 12 1035; Mul 1030 35 1030; Add 1039 1039 1030;
  Sub 1038 1038 1039; Mul 1039 35 1038; Mul 1030 46 1035; Add 1039 1039 1030; Sub 1037 1037 1039;
  Sub 1033 1033 1037; Sub 1033 1033 1027; Add 1039 57 57; Mul 1030 50 1032; Mul 1040 1039 1030; Add 1041 52 52;
  Mul 1042 50 1034; Mul 1043 19 1042; Mul 1044 49 1036; Sub 1043 1043 1044; Mul 1044 51 1035;
  Sub 1043 1043 1044; Mul 1044 1041 1043; Sub 1045 1040 1044; Mul 1045 37 1045; Add 1033 1033 1045;
  Add 64 64 64; Mul 1045 49 1035].
Definition casadi_f0_34 : list instruction := [
  Mul 1046 35 1042; Add 1045 1045 1046; Mul 1046 51 1036; Sub 1045 1045 1046; Mul 1046 64 1045;
  Add 1044 1046 1044; Mul 1044 37 1044; Add 1044 1027 1044; Add 1033 1033 1044; Mul 1047 43 1025;
  Mul 1048 42 1025; Mul 1049 40 1026; Add 1048 1048 1049; Sub 1047 1047 1048; Mul 1048 44 1032;
  Sub 1047 1047 1048; Mul 1048 67 1047; Mul 1049 19 1048; Mul 1050 71 1036; Sub 1049 1049 1050;
  Mul 1050 75 1035; Mul 1028 16 1028; Mul 1051 21 1025; Add 1028 1028 1051; Mul 1032 74 1032; Mul 1034 20 1034;
  Mul 1034 34 1034; Sub 1032 1032 1034; Add 1028 1028 1032; Add 1032 1028 1028; Mul 1034 35 1032;
  Sub 1050 1050 1034; Add 1049 1049 1050; Mul 1050 73 1035; Mul 1034 35 1028; Sub 1050 1050 1034;
  Mul 1034 19 1047; Mul 1051 70 1036; Sub 1034 1034 1051; Add 1050 1050 1034; Sub 1049 1049 1050;
  Mul 1050 76 1030; Mul 1034 37 1045; Mul 1051 57 1034; Sub 1050 1050 1051; Sub 1049 1049 1050;
  Mul 1050 67 1049; Mul 1050 66 1050; Arg 1051 1 3; Mul 1052 53 1051; Mul 1053 77 1052; Sub 1050 1050 1053;
  Mul 1051 66 1051; Mul 1053 11 1051; Mul 1054 53 1033; Add 1053 1053 1054; Sub 1050 1050 1053;
  Mul 1053 53 1050; Mul 1054 78 1051; Add 1053 1053 1054; Add 1033 1033 1053; Sub 1033 1033 1044;
  Add 1054 63 63; Mul 1055 87 1052; Mul 1056 83 1030; Mul 1057 66 1056; Add 1055 1055 1057; Mul 1057 88 1051;
  Mul 1045 83 1045; Mul 1058 53 1045; Add 1057 1057 1058; Add 1055 1055 1057; Mul 1057 1054 1055;
  Add 1058 27 27; Mul 1059 83 1043; Mul 1060 1058 1059; Sub 1061 1057 1060; Mul 1061 80 1061;
  Add 1033 1033 1061; Add 1044 1044 1053; Add 93 93 93; Mul 1053 66 1045; Mul 1061 88 1052; Sub 1053 1053 1061;
  Mul 1061 87 1051; Mul 1062 53 1056; Sub 1061 1061 1062; Add 1053 1053 1061; Mul 1061 93 1053;
  Add 1060 1061 1060; Mul 1060 80 1060; Add 1044 1044 1060; Add 1033 1033 1044; Mul 1060 9 1033;
  Add 1024 1024 1060; Mul 1050 66 1050; Mul 1060 78 1052; Sub 1050 1050 1060; Sub 1050 1050 1049;
  Mul 1049 72 1055; Mul 1060 80 1053; Mul 1062 63 1060; Sub 1049 1049 1062; Sub 1050 1050 1049;
  Mul 1049 67 1050; Mul 1049 8 1049; Mul 1022 9 1022; Mul 1062 97 1022; Sub 1049 1049 1062; Add 1024 1024 1049;
  Mul 1049 9 1024; Mul 1062 84 1023; Add 1049 1049 1062; Sub 1062 1049 1044; Add 33 33 33; Mul 1053 104 1053;
  Mul 1063 8 1053; Mul 1064 103 1022; Sub 1063 1063 1064; Mul 1064 105 1023; Mul 1065 104 1055; Mul 1066 9 1065;
  Sub 1064 1064 1066; Sub 1063 1063 1064; Mul 1064 33 1063; Add 1066 111 111; Mul 1067 104 1059;
  Mul 1068 1066 1067; Add 1069 1064 1068; Mul 1069 100 1069; Sub 1062 1062 1069; Mul 1024 8 1024;
  Mul 1069 84 1022; Sub 1024 1024 1069; Sub 1024 1024 1050; Mul 1050 103 1023; Mul 1069 9 1053;
  Add 1050 1050 1069; Mul 1069 105 1022; Mul 1070 8 1065; Add 1069 1069 1070; Sub 1050 1050 1069;
  Mul 1069 96 1050; Mul 1070 100 1063; Mul 1071 117 1070; Sub 1069 1069 1071; Add 1024 1024 1069;
  Mul 1024 67 1024; Mul 1024 114 1024].
Definition casadi_f0_35 : list instruction := [
  Arg 1069 1 1; Mul 1071 113 1069; Mul 1072 116 1071; Sub 1024 1024 1072; Mul 1069 114 1069; Mul 1072 119 1069;
  Sub 1033 1033 1049; Sub 1033 1033 1044; Add 1044 117 117; Mul 1049 1044 1050; Sub 1068 1049 1068;
  Mul 1068 100 1068; Add 1033 1033 1068; Sub 1033 1033 1062; Mul 1033 113 1033; Add 1072 1072 1033;
  Sub 1024 1024 1072; Mul 1024 113 1024; Mul 1072 118 1069; Add 1024 1024 1072; Sub 1062 1062 1024;
  Add 112 112 112; Mul 1063 120 1063; Mul 1024 114 1063; Mul 1072 60 1071; Sub 1024 1024 1072;
  Mul 1072 121 1069; Mul 1033 120 1050; Mul 1068 113 1033; Add 1072 1072 1068; Add 1024 1024 1072;
  Mul 1072 112 1024; Add 123 123 123; Mul 1068 120 1067; Mul 1073 123 1068; Add 1072 1072 1073;
  Mul 1072 99 1072; Sub 1062 1062 1072; Add 110 110 110; Mul 1024 125 1024; Mul 1024 110 1024; Add 126 126 126;
  Mul 1072 125 1068; Mul 1072 126 1072; Add 1024 1024 1072; Mul 1024 122 1024; Add 1062 1062 1024;
  Div 1024 1062 92; Div 1072 210 92; Add 6 6 6; Mul 1062 6 1062; Add 1073 143 143; Mul 1074 130 1023;
  Mul 1038 19 1038; Mul 1075 46 1036; Sub 1038 1038 1075; Mul 1029 35 1029; Mul 1075 38 1035;
  Add 1029 1029 1075; Add 1038 1038 1029; Mul 1034 52 1034; Mul 1029 76 1043; Add 1034 1034 1029;
  Add 1038 1038 1034; Mul 1034 66 1038; Mul 1029 129 1052; Sub 1034 1034 1029; Mul 1029 132 1051;
  Mul 1075 70 1035; Mul 1076 35 1047; Add 1075 1075 1076; Mul 1076 73 1036; Mul 1077 19 1028;
  Add 1076 1076 1077; Add 1075 1075 1076; Mul 1032 19 1032; Mul 1076 75 1036; Add 1032 1032 1076;
  Mul 1048 35 1048; Mul 1076 71 1035; Add 1048 1048 1076; Add 1032 1032 1048; Sub 1075 1075 1032;
  Mul 1032 133 1030; Mul 1043 37 1043; Mul 1043 57 1043; Sub 1032 1032 1043; Sub 1075 1075 1032;
  Mul 1032 53 1075; Add 1029 1029 1032; Add 1034 1034 1029; Mul 1060 27 1060; Mul 1029 72 1059;
  Add 1060 1060 1029; Add 1034 1034 1060; Mul 1060 9 1034; Add 1074 1074 1060; Add 1060 1075 1075;
  Mul 1060 66 1060; Mul 1029 136 1052; Sub 1060 1060 1029; Mul 1029 129 1051; Mul 1032 53 1038;
  Add 1029 1029 1032; Sub 1060 1060 1029; Mul 1029 66 1075; Mul 1032 132 1052; Sub 1029 1029 1032;
  Sub 1060 1060 1029; Mul 1055 138 1055; Mul 1029 80 1059; Mul 1029 63 1029; Sub 1055 1055 1029;
  Sub 1060 1060 1055; Add 1055 1060 1060; Mul 1055 8 1055; Mul 1029 139 1022; Sub 1055 1055 1029;
  Add 1074 1074 1055; Mul 1055 8 1060; Mul 1029 137 1022; Sub 1055 1055 1029; Sub 1074 1074 1055;
  Mul 1050 140 1050; Mul 1055 100 1067; Mul 1055 117 1055; Sub 1050 1050 1055; Add 1074 1074 1050;
  Mul 1050 141 1068; Mul 1050 121 1050; Mul 1055 142 1033; Add 1050 1050 1055; Sub 1074 1074 1050;
  Mul 1074 114 1074; Mul 1050 134 1071; Sub 1074 1074 1050; Mul 1050 145 1069; Mul 1055 8 1034;
  Mul 1029 130 1022; Sub 1055 1055 1029; Mul 1029 137 1023; Mul 1032 9 1060; Add 1029 1029 1032;
  Sub 1055 1055 1029; Mul 1070 111 1070; Mul 1029 96 1067; Add 1070 1070 1029; Add 1055 1055 1070;
  Mul 1070 141 1063].
Definition casadi_f0_36 : list instruction := [
  Mul 1070 124 1070; Mul 1068 146 1068; Add 1070 1070 1068; Sub 1055 1055 1070; Mul 1055 113 1055;
  Add 1050 1050 1055; Sub 1074 1074 1050; Mul 1050 1073 1074; Add 1062 1062 1050; Add 1050 154 154;
  Mul 1055 150 1069; Mul 1070 149 1023; Mul 1068 148 1067; Mul 1029 147 1065; Mul 1032 109 1029;
  Sub 1068 1068 1032; Add 1060 1060 1068; Mul 1068 9 1060; Add 1070 1070 1068; Mul 1067 151 1067;
  Mul 1068 147 1053; Mul 1032 109 1068; Add 1067 1067 1032; Add 1034 1034 1067; Mul 1067 8 1034;
  Mul 1032 152 1022; Sub 1067 1067 1032; Sub 1070 1070 1067; Mul 1067 148 1023; Mul 1032 9 1029;
  Sub 1067 1067 1032; Mul 1032 8 1068; Mul 1043 151 1022; Sub 1032 1032 1043; Sub 1067 1067 1032;
  Mul 1032 108 1067; Add 1070 1070 1032; Mul 1070 113 1070; Add 1055 1055 1070; Mul 1070 152 1023;
  Mul 1034 9 1034; Add 1070 1070 1034; Mul 1060 8 1060; Mul 1034 149 1022; Sub 1060 1060 1034;
  Add 1070 1070 1060; Mul 1060 151 1023; Mul 1034 9 1068; Add 1060 1060 1034; Mul 1034 148 1022;
  Mul 1032 8 1029; Add 1034 1034 1032; Sub 1060 1060 1034; Mul 1060 108 1060; Add 1070 1070 1060;
  Mul 1070 114 1070; Mul 1060 155 1071; Sub 1070 1070 1060; Add 1055 1055 1070; Mul 1070 1050 1055;
  Add 1062 1062 1070; Add 1070 168 168; Mul 1060 159 1023; Mul 1034 156 1045; Mul 1034 82 1034;
  Mul 1032 157 1059; Add 1034 1034 1032; Sub 1038 1038 1034; Mul 1034 66 1038; Mul 1032 158 1052;
  Sub 1034 1034 1032; Mul 1032 161 1051; Mul 1059 156 1059; Mul 1059 87 1059; Mul 1043 160 1056;
  Sub 1059 1059 1043; Sub 1075 1075 1059; Mul 1059 53 1075; Add 1032 1032 1059; Add 1034 1034 1032;
  Mul 1032 9 1034; Add 1060 1060 1032; Mul 1075 66 1075; Mul 1032 161 1052; Sub 1075 1075 1032;
  Mul 1032 158 1051; Mul 1038 53 1038; Add 1032 1032 1038; Sub 1075 1075 1032; Mul 1032 8 1075;
  Mul 1038 163 1022; Sub 1032 1032 1038; Add 1060 1060 1032; Mul 1032 167 1051; Mul 1038 166 1045;
  Mul 1059 53 1038; Add 1032 1032 1059; Mul 1059 164 1052; Mul 1043 156 1056; Mul 1048 66 1043;
  Add 1059 1059 1048; Sub 1032 1032 1059; Mul 1059 8 1032; Mul 1048 165 1022; Sub 1059 1059 1048;
  Mul 1048 169 1023; Mul 1038 66 1038; Mul 1076 167 1052; Sub 1038 1038 1076; Mul 1076 164 1051;
  Mul 1043 53 1043; Sub 1076 1076 1043; Sub 1038 1038 1076; Mul 1076 9 1038; Add 1048 1048 1076;
  Sub 1059 1059 1048; Mul 1059 108 1059; Sub 1060 1060 1059; Mul 1060 114 1060; Mul 1059 162 1071;
  Sub 1060 1060 1059; Mul 1059 170 1069; Mul 1034 8 1034; Mul 1048 159 1022; Sub 1034 1034 1048;
  Mul 1048 163 1023; Mul 1075 9 1075; Add 1048 1048 1075; Sub 1034 1034 1048; Mul 1048 165 1023;
  Mul 1075 9 1032; Add 1048 1048 1075; Mul 1075 8 1038; Mul 1076 169 1022; Sub 1075 1075 1076;
  Add 1048 1048 1075; Mul 1075 108 1048; Add 1034 1034 1075; Mul 1034 113 1034; Add 1059 1059 1034;
  Sub 1060 1060 1059; Mul 1059 1070 1060; Add 1062 1062 1059; Add 1059 175 175; Mul 1034 179 1023;
  Mul 1075 177 1051; Mul 1076 174 1042; Mul 1042 173 1042; Mul 1043 49 1042].
Definition casadi_f0_37 : list instruction := [
  Add 1076 1076 1043; Add 1076 1076 1027; Mul 1043 174 1035; Mul 1077 35 1042; Add 1043 1043 1077;
  Mul 1077 176 1036; Sub 1043 1043 1077; Mul 1077 62 1043; Mul 1078 176 1035; Mul 1079 19 1042;
  Mul 1080 174 1036; Sub 1079 1079 1080; Sub 1078 1078 1079; Mul 1079 48 1078; Sub 1077 1077 1079;
  Add 1077 1076 1077; Mul 1079 53 1077; Add 1075 1075 1079; Mul 1079 176 1030; Sub 1047 1047 1079;
  Mul 1079 19 1047; Mul 1080 180 1036; Sub 1079 1079 1080; Mul 1080 182 1035; Mul 1042 56 1042;
  Mul 1030 174 1030; Sub 1042 1042 1030; Sub 1042 1042 1028; Mul 1028 35 1042; Add 1080 1080 1028;
  Add 1079 1079 1080; Mul 1080 55 1043; Add 1079 1079 1080; Mul 1080 66 1079; Mul 1028 181 1052;
  Sub 1080 1080 1028; Sub 1075 1075 1080; Mul 1080 86 1043; Sub 1075 1075 1080; Mul 1080 9 1075;
  Add 1034 1034 1080; Mul 1080 181 1051; Mul 1079 53 1079; Add 1080 1080 1079; Mul 1077 66 1077;
  Mul 1079 177 1052; Sub 1077 1077 1079; Add 1080 1080 1077; Mul 1077 91 1043; Add 1080 1080 1077;
  Mul 1077 8 1080; Mul 1079 184 1022; Sub 1077 1077 1079; Add 1034 1034 1077; Mul 1043 102 1043;
  Mul 1077 66 1078; Mul 1079 178 1052; Sub 1077 1077 1079; Mul 1079 8 1077; Mul 1028 185 1022;
  Sub 1079 1079 1028; Mul 1028 187 1023; Mul 1030 178 1051; Mul 1081 53 1078; Add 1030 1030 1081;
  Mul 1081 9 1030; Add 1028 1028 1081; Add 1079 1079 1028; Mul 1079 108 1079; Sub 1043 1043 1079;
  Add 1034 1034 1043; Mul 1034 114 1034; Mul 1043 183 1071; Sub 1034 1034 1043; Mul 1043 186 1069;
  Mul 1075 8 1075; Mul 1079 179 1022; Sub 1075 1075 1079; Mul 1079 184 1023; Mul 1080 9 1080;
  Add 1079 1079 1080; Sub 1075 1075 1079; Mul 1079 185 1023; Mul 1080 9 1077; Add 1079 1079 1080;
  Mul 1080 8 1030; Mul 1028 187 1022; Sub 1080 1080 1028; Sub 1079 1079 1080; Mul 1080 108 1079;
  Add 1075 1075 1080; Mul 1075 113 1075; Add 1043 1043 1075; Sub 1034 1034 1043; Mul 1043 1059 1034;
  Add 1062 1062 1043; Add 1043 200 200; Mul 1075 199 1023; Mul 1080 196 1035; Mul 1028 197 1026;
  Mul 1081 195 1025; Sub 1028 1028 1081; Mul 1081 190 1025; Mul 1082 192 1026; Add 1081 1081 1082;
  Mul 1082 198 1081; Add 1028 1028 1082; Mul 1082 35 1028; Add 1080 1080 1082; Mul 1082 189 1036;
  Mul 1083 25 1081; Mul 1084 190 1026; Mul 1085 192 1025; Sub 1084 1084 1085; Mul 1085 32 1084;
  Add 1083 1083 1085; Mul 1085 19 1083; Add 1082 1082 1085; Sub 1080 1080 1082; Mul 1082 48 1081;
  Mul 1085 19 1084; Mul 1086 194 1036; Sub 1085 1085 1086; Mul 1086 55 1085; Add 1082 1082 1086;
  Sub 1080 1080 1082; Mul 1082 66 1080; Mul 1086 193 1052; Sub 1082 1082 1086; Mul 1086 202 1051;
  Mul 1087 198 1084; Mul 1088 197 1025; Mul 1089 195 1026; Add 1088 1088 1089; Sub 1087 1087 1088;
  Mul 1088 62 1085; Mul 1089 194 1035; Mul 1084 35 1084; Add 1089 1089 1084; Mul 1084 48 1089;
  Sub 1088 1088 1084; Add 1088 1087 1088; Mul 1084 53 1088; Add 1086 1086 1084; Add 1082 1082 1086;
  Mul 1086 86 1085; Sub 1082 1082 1086; Mul 1086 9 1082; Add 1075 1075 1086].
Definition casadi_f0_38 : list instruction := [
  Mul 1088 66 1088; Mul 1086 202 1052; Sub 1088 1088 1086; Mul 1086 193 1051; Mul 1080 53 1080;
  Add 1086 1086 1080; Sub 1088 1088 1086; Mul 1086 91 1085; Add 1088 1088 1086; Mul 1086 8 1088;
  Mul 1080 205 1022; Sub 1086 1086 1080; Add 1075 1075 1086; Mul 1085 102 1085; Mul 1086 66 1089;
  Mul 1080 203 1052; Sub 1086 1086 1080; Mul 1080 191 1051; Mul 1084 53 1081; Sub 1080 1080 1084;
  Add 1086 1086 1080; Mul 1080 8 1086; Mul 1084 206 1022; Sub 1080 1080 1084; Mul 1084 208 1023;
  Mul 1090 191 1052; Mul 1091 66 1081; Add 1090 1090 1091; Mul 1091 203 1051; Mul 1092 53 1089;
  Add 1091 1091 1092; Add 1090 1090 1091; Mul 1091 9 1090; Sub 1084 1084 1091; Sub 1080 1080 1084;
  Mul 1080 108 1080; Sub 1085 1085 1080; Add 1075 1075 1085; Mul 1075 114 1075; Mul 1085 204 1071;
  Sub 1075 1075 1085; Mul 1085 207 1069; Mul 1082 8 1082; Mul 1080 199 1022; Sub 1082 1082 1080;
  Mul 1080 205 1023; Mul 1088 9 1088; Add 1080 1080 1088; Sub 1082 1082 1080; Mul 1080 206 1023;
  Mul 1088 9 1086; Add 1080 1080 1088; Mul 1088 208 1022; Mul 1084 8 1090; Add 1088 1088 1084;
  Sub 1080 1080 1088; Mul 1088 108 1080; Add 1082 1082 1088; Mul 1082 113 1082; Add 1085 1085 1082;
  Sub 1075 1075 1085; Mul 1085 1043 1075; Add 1062 1062 1085; Add 1085 92 92; Div 1062 1062 1085;
  Mul 1082 1072 1062; Sub 1024 1024 1082; Mul 1082 211 1024; Mul 1088 216 1069; Arg 1084 1 0; Mul 1091 215 1084;
  Mul 1092 113 1091; Sub 1088 1088 1092; Mul 1092 218 1088; Mul 1093 114 1016; Mul 1094 0 1071;
  Sub 1093 1093 1094; Mul 1094 217 1093; Add 1092 1092 1094; Mul 1084 216 1084; Mul 1094 1 1084;
  Mul 1095 215 1017; Add 1094 1094 1095; Sub 1092 1092 1094; Mul 1094 0 1069; Mul 1095 113 1016;
  Add 1094 1094 1095; Mul 1095 220 1094; Mul 1096 114 1091; Mul 1097 216 1071; Add 1096 1096 1097;
  Mul 1097 221 1096; Sub 1095 1095 1097; Sub 1092 1092 1095; Mul 1095 214 1092; Mul 1097 213 1095;
  Mul 1097 212 1097; Mul 1098 225 1097; Mul 1099 114 1084; Mul 1100 215 1071; Sub 1099 1099 1100;
  Mul 1100 101 1099; Mul 1101 107 1091; Sub 1100 1100 1101; Mul 1101 223 1100; Add 1102 1098 1101;
  Mul 1103 216 1017; Mul 1104 1 1091; Sub 1103 1103 1104; Mul 1104 113 1084; Mul 1105 215 1069;
  Add 1104 1104 1105; Mul 1105 218 1104; Mul 1106 228 1093; Add 1105 1105 1106; Add 1103 1103 1105;
  Mul 1105 221 1099; Mul 1106 224 1094; Add 1105 1105 1106; Sub 1103 1103 1105; Mul 1105 214 1103;
  Mul 1106 213 1105; Mul 1106 212 1106; Mul 1107 231 1106; Mul 1108 101 1096; Mul 1109 107 1084;
  Add 1108 1108 1109; Mul 1109 230 1108; Sub 1107 1107 1109; Sub 1109 1102 1107; Add 1101 1101 1098;
  Sub 1107 1101 1107; Add 1098 1109 1107; Mul 1110 144 1069; Mul 1111 215 1110; Mul 1112 240 1084;
  Add 1111 1111 1112; Mul 1112 236 1071; Mul 1113 238 1069; Add 1112 1112 1113; Mul 1113 220 1112;
  Mul 1114 237 1096; Add 1113 1113 1114; Sub 1111 1111 1113; Mul 1113 115 1091; Add 1111 1111 1113;
  Mul 1113 212 1108; Mul 1114 242 1113; Mul 1115 101 1069].
Definition casadi_f0_39 : list instruction := [
  Mul 1116 241 1115; Add 1114 1114 1116; Add 1114 1111 1114; Mul 1116 244 1114; Mul 1117 213 1103;
  Mul 1118 243 1117; Add 1119 1116 1118; Mul 1120 237 1099; Mul 1121 224 1112; Sub 1120 1120 1121;
  Mul 1110 216 1110; Mul 1121 240 1091; Sub 1110 1110 1121; Sub 1120 1120 1110; Mul 1110 115 1084;
  Sub 1120 1120 1110; Mul 1110 212 1100; Mul 1110 242 1110; Mul 1121 247 1115; Sub 1110 1110 1121;
  Sub 1110 1120 1110; Mul 1121 249 1110; Mul 1122 213 1092; Mul 1123 248 1122; Add 1124 1121 1123;
  Sub 1125 1119 1124; Sub 1098 1098 1125; Add 1123 1123 1121; Add 1118 1118 1116; Sub 1116 1123 1118;
  Add 1098 1098 1116; Mul 1116 9 1088; Mul 1121 217 1023; Add 1116 1116 1121; Mul 1121 8 1096;
  Mul 1125 220 1022; Add 1121 1121 1125; Sub 1116 1116 1121; Mul 1121 254 1116; Mul 1125 218 1023;
  Mul 1126 9 1093; Add 1125 1125 1126; Mul 1126 8 1094; Mul 1127 221 1022; Sub 1126 1126 1127;
  Sub 1125 1125 1126; Mul 1126 253 1125; Add 1121 1121 1126; Mul 1088 8 1088; Mul 1126 217 1022;
  Sub 1088 1088 1126; Mul 1126 220 1023; Mul 1127 9 1096; Sub 1126 1126 1127; Sub 1088 1088 1126;
  Mul 1126 257 1088; Mul 1127 221 1023; Mul 1128 9 1094; Add 1127 1127 1128; Mul 1128 8 1093; Mul 1129 218 1022;
  Sub 1128 1128 1129; Add 1127 1127 1128; Mul 1128 256 1127; Add 1126 1126 1128; Mul 1128 259 1084;
  Sub 1129 1017 1018; Mul 1130 215 1129; Add 1128 1128 1130; Sub 1126 1126 1128; Add 1121 1121 1126;
  Mul 1126 213 1121; Mul 1128 276 1126; Mul 1130 114 1023; Mul 1131 9 1071; Sub 1130 1130 1131; Mul 1131 8 1069;
  Mul 1132 113 1022; Sub 1131 1131 1132; Sub 1130 1130 1131; Mul 1131 260 1130; Mul 1132 9 1069;
  Mul 1133 113 1023; Add 1132 1132 1133; Mul 1133 8 1071; Mul 1134 114 1022; Add 1133 1133 1134;
  Sub 1132 1132 1133; Mul 1133 263 1132; Add 1131 1131 1133; Mul 1133 265 1131; Mul 1134 8 1099;
  Mul 1135 224 1022; Sub 1134 1134 1135; Mul 1135 9 1104; Mul 1136 228 1023; Add 1135 1135 1136;
  Add 1134 1134 1135; Mul 1135 262 1134; Add 1133 1133 1135; Mul 1135 127 1130; Mul 1136 268 1132;
  Add 1135 1135 1136; Mul 1136 216 1135; Mul 1137 267 1091; Sub 1136 1136 1137; Add 1133 1133 1136;
  Mul 1136 135 1116; Mul 1137 95 1084; Add 1136 1136 1137; Sub 1133 1133 1136; Mul 1136 102 1099;
  Mul 1137 108 1091; Sub 1136 1136 1137; Mul 1137 79 1134; Mul 1138 8 1104; Mul 1139 228 1022;
  Sub 1138 1138 1139; Mul 1139 9 1099; Mul 1140 224 1023; Add 1139 1139 1140; Sub 1138 1138 1139;
  Mul 1139 85 1138; Mul 1140 81 1091; Sub 1139 1139 1140; Add 1137 1137 1139; Add 1137 1136 1137;
  Mul 1139 269 1137; Mul 1139 275 1139; Mul 1140 79 1130; Mul 1141 85 1132; Add 1140 1140 1141;
  Mul 1141 102 1069; Sub 1140 1140 1141; Mul 1142 272 1140; Add 1139 1139 1142; Sub 1139 1133 1139;
  Mul 1142 258 1139; Add 1143 1128 1142; Mul 1144 254 1134; Mul 1145 265 1125; Add 1144 1144 1145;
  Mul 1145 216 1129; Mul 1146 259 1091; Sub 1145 1145 1146; Mul 1146 257 1138; Mul 1147 273 1127;
  Add 1146 1146 1147; Add 1145 1145 1146].
Definition casadi_f0_40 : list instruction := [
  Add 1144 1144 1145; Mul 1145 213 1144; Mul 1146 284 1145; Mul 1147 253 1131; Mul 1148 262 1116;
  Add 1147 1147 1148; Mul 1135 215 1135; Mul 1148 267 1084; Add 1135 1135 1148; Sub 1147 1147 1135;
  Mul 1135 95 1091; Mul 1148 135 1134; Add 1135 1135 1148; Add 1147 1147 1135; Mul 1135 79 1116;
  Mul 1148 85 1088; Mul 1149 81 1084; Sub 1148 1148 1149; Add 1135 1135 1148; Mul 1148 102 1096;
  Mul 1149 108 1084; Add 1148 1148 1149; Sub 1135 1135 1148; Mul 1149 269 1135; Mul 1150 275 1149;
  Mul 1151 283 1140; Add 1150 1150 1151; Sub 1150 1147 1150; Mul 1151 279 1150; Add 1152 1146 1151;
  Sub 1153 1143 1152; Mul 1154 292 1140; Mul 1155 288 1132; Mul 1156 287 1023; Mul 1157 108 1093;
  Mul 1158 9 1157; Add 1156 1156 1158; Mul 1158 102 1017; Mul 1159 108 1094; Add 1158 1158 1159;
  Mul 1159 8 1158; Mul 1160 289 1022; Sub 1159 1159 1160; Sub 1156 1156 1159; Mul 1159 264 1156;
  Add 1155 1155 1159; Mul 1159 291 1130; Mul 1157 8 1157; Mul 1160 287 1022; Sub 1157 1157 1160;
  Mul 1160 289 1023; Mul 1158 9 1158; Add 1160 1160 1158; Add 1157 1157 1160; Mul 1160 261 1157;
  Add 1159 1159 1160; Sub 1155 1155 1159; Mul 1159 281 1144; Mul 1160 278 1148; Sub 1159 1159 1160;
  Mul 1160 255 1136; Mul 1158 270 1121; Add 1160 1160 1158; Sub 1159 1159 1160; Add 1155 1155 1159;
  Mul 1159 213 1155; Mul 1159 269 1159; Mul 1160 275 1159; Add 1158 1154 1160; Mul 1161 288 1088;
  Mul 1162 256 1156; Add 1161 1161 1162; Mul 1162 295 1084; Mul 1163 102 1093; Mul 1164 215 1163;
  Add 1162 1162 1164; Sub 1161 1161 1162; Mul 1162 291 1116; Mul 1164 253 1157; Add 1162 1162 1164;
  Sub 1161 1161 1162; Mul 1162 296 1136; Mul 1164 254 1130; Mul 1165 261 1125; Add 1164 1164 1165;
  Mul 1165 257 1132; Mul 1166 264 1127; Add 1165 1165 1166; Add 1164 1164 1165; Mul 1165 270 1164;
  Add 1162 1162 1165; Mul 1165 274 1144; Mul 1166 278 1141; Sub 1165 1165 1166; Sub 1162 1162 1165;
  Add 1161 1161 1162; Mul 1162 213 1161; Mul 1162 269 1162; Mul 1165 282 1162; Mul 1166 297 1135;
  Add 1167 1165 1166; Mul 1168 216 1163; Mul 1169 295 1091; Sub 1168 1168 1169; Mul 1169 288 1138;
  Mul 1170 273 1156; Add 1169 1169 1170; Add 1168 1168 1169; Mul 1169 291 1134; Mul 1170 265 1157;
  Add 1169 1169 1170; Sub 1168 1168 1169; Mul 1169 274 1121; Mul 1170 255 1141; Sub 1169 1169 1170;
  Mul 1170 281 1164; Mul 1171 296 1148; Sub 1170 1170 1171; Sub 1169 1169 1170; Add 1168 1168 1169;
  Mul 1169 213 1168; Mul 1169 269 1169; Mul 1170 271 1169; Mul 1171 300 1137; Add 1172 1170 1171;
  Add 1160 1160 1154; Add 1154 1172 1160; Add 1167 1167 1154; Sub 1173 1158 1167; Add 1166 1166 1165;
  Add 1171 1171 1170; Add 1158 1171 1158; Add 1166 1166 1158; Sub 1160 1160 1166; Add 1173 1173 1160;
  Add 1151 1151 1146; Add 1142 1142 1128; Sub 1128 1151 1142; Add 1173 1173 1128; Sub 1153 1153 1173;
  Mul 1173 66 1116; Mul 1128 253 1052; Sub 1173 1173 1128; Mul 1128 53 1088; Mul 1146 256 1051;
  Add 1128 1128 1146; Sub 1173 1173 1128; Mul 1128 308 1173; Mul 1146 66 1125].
Definition casadi_f0_41 : list instruction := [
  Mul 1160 254 1052; Sub 1146 1146 1160; Mul 1160 257 1051; Mul 1170 53 1127; Add 1160 1160 1170;
  Sub 1146 1146 1160; Mul 1160 304 1146; Add 1128 1128 1160; Mul 1160 53 1116; Mul 1170 253 1051;
  Add 1160 1160 1170; Mul 1170 66 1088; Mul 1165 256 1052; Sub 1170 1170 1165; Add 1160 1160 1170;
  Mul 1170 311 1160; Mul 1165 254 1051; Mul 1174 53 1125; Add 1165 1165 1174; Mul 1174 66 1127;
  Mul 1175 257 1052; Sub 1174 1174 1175; Add 1165 1165 1174; Mul 1174 310 1165; Add 1170 1170 1174;
  Mul 1174 313 1084; Add 1175 1019 1129; Mul 1176 215 1175; Add 1174 1174 1176; Sub 1170 1170 1174;
  Add 1128 1128 1170; Mul 1170 213 1128; Mul 1174 330 1170; Mul 1176 66 1130; Mul 1177 261 1052;
  Sub 1176 1176 1177; Mul 1177 53 1132; Mul 1178 264 1051; Add 1177 1177 1178; Sub 1176 1176 1177;
  Mul 1177 314 1176; Mul 1178 53 1130; Mul 1179 261 1051; Add 1178 1178 1179; Mul 1179 66 1132;
  Mul 1180 264 1052; Sub 1179 1179 1180; Add 1178 1178 1179; Mul 1179 317 1178; Add 1177 1177 1179;
  Mul 1179 319 1177; Mul 1180 66 1134; Mul 1181 265 1052; Sub 1180 1180 1181; Mul 1181 53 1138;
  Mul 1182 273 1051; Add 1181 1181 1182; Sub 1180 1180 1181; Mul 1181 316 1180; Add 1179 1179 1181;
  Mul 1181 128 1176; Mul 1182 322 1178; Add 1181 1181 1182; Mul 1182 216 1181; Mul 1183 321 1091;
  Sub 1182 1182 1183; Add 1179 1179 1182; Mul 1182 131 1173; Mul 1183 68 1084; Add 1182 1182 1183;
  Sub 1179 1179 1182; Mul 1182 91 1134; Mul 1183 86 1138; Add 1182 1182 1183; Add 1182 1136 1182;
  Mul 1183 61 1180; Mul 1184 53 1134; Mul 1185 265 1051; Add 1184 1184 1185; Mul 1185 66 1138;
  Mul 1186 273 1052; Sub 1185 1185 1186; Add 1184 1184 1185; Mul 1185 54 1184; Mul 1186 47 1091;
  Sub 1185 1185 1186; Add 1183 1183 1185; Add 1183 1182 1183; Mul 1185 323 1183; Mul 1185 329 1185;
  Mul 1186 91 1130; Mul 1132 86 1132; Add 1186 1186 1132; Sub 1186 1186 1141; Mul 1132 61 1176;
  Mul 1187 54 1178; Add 1132 1132 1187; Add 1132 1186 1132; Mul 1187 326 1132; Add 1185 1185 1187;
  Sub 1185 1179 1185; Mul 1187 312 1185; Add 1188 1174 1187; Mul 1189 308 1180; Mul 1190 319 1146;
  Add 1189 1189 1190; Mul 1190 216 1175; Mul 1191 313 1091; Sub 1190 1190 1191; Mul 1191 311 1184;
  Mul 1192 327 1165; Add 1191 1191 1192; Add 1190 1190 1191; Add 1189 1189 1190; Mul 1190 213 1189;
  Mul 1191 338 1190; Mul 1192 304 1177; Mul 1193 316 1173; Add 1192 1192 1193; Mul 1181 215 1181;
  Mul 1193 321 1084; Add 1181 1181 1193; Sub 1192 1192 1181; Mul 1181 68 1091; Mul 1193 131 1180;
  Add 1181 1181 1193; Add 1192 1192 1181; Mul 1181 91 1116; Mul 1088 86 1088; Add 1181 1181 1088;
  Sub 1181 1181 1148; Mul 1088 61 1173; Mul 1193 54 1160; Mul 1194 47 1084; Sub 1193 1193 1194;
  Add 1088 1088 1193; Add 1088 1181 1088; Mul 1193 323 1088; Mul 1194 329 1193; Mul 1195 337 1132;
  Add 1194 1194 1195; Sub 1194 1192 1194; Mul 1195 333 1194; Add 1196 1191 1195; Sub 1197 1188 1196;
  Mul 1198 346 1132; Mul 1199 342 1176; Mul 1200 86 1129; Sub 1200 1200 1157].
Definition casadi_f0_42 : list instruction := [
  Mul 1157 66 1200; Mul 1201 341 1052; Sub 1157 1157 1201; Mul 1201 343 1051; Mul 1129 91 1129;
  Sub 1156 1156 1129; Mul 1129 53 1156; Add 1201 1201 1129; Sub 1157 1157 1201; Mul 1201 315 1157;
  Add 1199 1199 1201; Mul 1201 345 1178; Mul 1129 341 1051; Mul 1200 53 1200; Add 1129 1129 1200;
  Mul 1156 66 1156; Mul 1200 343 1052; Sub 1156 1156 1200; Add 1129 1129 1156; Mul 1156 318 1129;
  Add 1201 1201 1156; Add 1199 1199 1201; Mul 1201 332 1181; Mul 1156 335 1189; Add 1201 1201 1156;
  Mul 1156 309 1182; Mul 1200 324 1128; Add 1156 1156 1200; Sub 1201 1201 1156; Add 1199 1199 1201;
  Mul 1201 213 1199; Mul 1201 323 1201; Mul 1156 329 1201; Add 1200 1198 1156; Mul 1202 342 1173;
  Mul 1203 304 1157; Add 1202 1202 1203; Mul 1203 345 1160; Mul 1204 310 1129; Add 1203 1203 1204;
  Mul 1204 350 1084; Mul 1125 86 1125; Mul 1127 91 1127; Sub 1125 1125 1127; Sub 1163 1163 1125;
  Mul 1125 215 1163; Add 1204 1204 1125; Sub 1203 1203 1204; Add 1202 1202 1203; Mul 1203 349 1182;
  Mul 1204 308 1176; Mul 1125 315 1146; Add 1204 1204 1125; Mul 1125 311 1178; Mul 1127 318 1165;
  Add 1125 1125 1127; Add 1204 1204 1125; Mul 1125 324 1204; Add 1203 1203 1125; Mul 1125 332 1186;
  Mul 1127 328 1189; Add 1125 1125 1127; Sub 1203 1203 1125; Add 1202 1202 1203; Mul 1203 213 1202;
  Mul 1203 323 1203; Mul 1125 336 1203; Mul 1127 351 1088; Add 1205 1125 1127; Mul 1206 342 1180;
  Mul 1207 319 1157; Add 1206 1206 1207; Mul 1207 216 1163; Mul 1208 350 1091; Sub 1207 1207 1208;
  Mul 1208 345 1184; Mul 1209 327 1129; Add 1208 1208 1209; Add 1207 1207 1208; Add 1206 1206 1207;
  Mul 1207 309 1186; Mul 1208 328 1128; Add 1207 1207 1208; Mul 1208 349 1181; Mul 1209 335 1204;
  Add 1208 1208 1209; Sub 1207 1207 1208; Add 1206 1206 1207; Mul 1207 213 1206; Mul 1207 323 1207;
  Mul 1208 325 1207; Mul 1209 354 1183; Add 1210 1208 1209; Add 1156 1156 1198; Add 1198 1210 1156;
  Add 1205 1205 1198; Sub 1211 1200 1205; Add 1127 1127 1125; Add 1209 1209 1208; Add 1200 1209 1200;
  Add 1127 1127 1200; Sub 1156 1156 1127; Add 1211 1211 1156; Add 1195 1195 1191; Add 1187 1187 1174;
  Sub 1174 1195 1187; Add 1211 1211 1174; Sub 1197 1197 1211; Mul 1211 19 1173; Mul 1174 304 1036;
  Sub 1211 1211 1174; Mul 1174 35 1084; Mul 1191 215 1035; Add 1174 1174 1191; Add 1211 1211 1174;
  Mul 1174 362 1211; Mul 1191 19 1146; Mul 1156 308 1036; Sub 1191 1191 1156; Mul 1156 313 1035;
  Mul 1208 35 1175; Add 1156 1156 1208; Sub 1191 1191 1156; Mul 1156 358 1191; Add 1174 1174 1156;
  Mul 1156 35 1173; Mul 1208 304 1035; Add 1156 1156 1208; Mul 1208 19 1084; Mul 1125 215 1036;
  Sub 1208 1208 1125; Sub 1156 1156 1208; Mul 1208 365 1156; Mul 1125 308 1035; Mul 1212 35 1146;
  Add 1125 1125 1212; Mul 1212 19 1175; Mul 1213 313 1036; Sub 1212 1212 1213; Add 1125 1125 1212;
  Mul 1212 364 1125; Add 1208 1208 1212; Mul 1212 367 1160; Sub 1213 1165 1020; Mul 1214 310 1213;
  Add 1212 1212 1214; Add 1208 1208 1212; Add 1174 1174 1208; Mul 1208 213 1174].
Definition casadi_f0_43 : list instruction := [
  Mul 1212 385 1208; Mul 1214 19 1176; Mul 1215 315 1036; Sub 1214 1214 1215; Mul 1215 368 1214;
  Mul 1216 35 1176; Mul 1217 315 1035; Add 1216 1216 1217; Mul 1217 39 1216; Mul 1218 373 1178;
  Add 1217 1217 1218; Add 1215 1215 1217; Mul 1217 372 1215; Mul 1218 19 1180; Mul 1219 319 1036;
  Sub 1218 1218 1219; Mul 1219 216 1035; Mul 1220 35 1091; Sub 1219 1219 1220; Sub 1218 1218 1219;
  Mul 1219 370 1218; Add 1217 1217 1219; Mul 1219 39 1214; Mul 1220 376 1216; Add 1219 1219 1220;
  Mul 1220 377 1219; Mul 1221 35 1180; Mul 1222 319 1035; Add 1221 1221 1222; Mul 1222 19 1091;
  Mul 1223 216 1036; Add 1222 1222 1223; Sub 1221 1221 1222; Mul 1222 375 1221; Add 1220 1220 1222;
  Add 1217 1217 1220; Mul 1220 69 1156; Add 1217 1217 1220; Mul 1220 62 1180; Mul 1222 55 1184;
  Mul 1223 48 1091; Sub 1222 1222 1223; Add 1220 1220 1222; Add 1220 1182 1220; Mul 1222 380 1218;
  Mul 1223 24 1221; Mul 1224 31 1184; Add 1223 1223 1224; Add 1222 1222 1223; Add 1222 1220 1222;
  Mul 1223 378 1222; Mul 1223 384 1223; Mul 1224 62 1176; Mul 1225 55 1178; Add 1224 1224 1225;
  Add 1224 1186 1224; Mul 1225 380 1214; Mul 1226 24 1216; Mul 1227 31 1178; Add 1226 1226 1227;
  Add 1225 1225 1226; Add 1225 1224 1225; Mul 1226 382 1225; Add 1223 1223 1226; Sub 1223 1217 1223;
  Mul 1226 366 1223; Add 1227 1212 1226; Mul 1228 362 1218; Mul 1229 372 1191; Add 1228 1228 1229;
  Mul 1229 365 1221; Mul 1230 377 1125; Add 1229 1229 1230; Mul 1230 367 1184; Mul 1231 327 1213;
  Add 1230 1230 1231; Add 1229 1229 1230; Add 1228 1228 1229; Mul 1229 213 1228; Mul 1230 393 1229;
  Mul 1231 358 1215; Mul 1232 370 1211; Add 1231 1231 1232; Mul 1232 364 1219; Mul 1233 375 1156;
  Add 1232 1232 1233; Add 1231 1231 1232; Mul 1232 69 1221; Sub 1231 1231 1232; Mul 1232 62 1173;
  Mul 1233 55 1160; Mul 1234 48 1084; Sub 1233 1233 1234; Add 1232 1232 1233; Add 1232 1181 1232;
  Mul 1233 380 1211; Mul 1234 24 1156; Mul 1235 31 1160; Add 1234 1234 1235; Add 1233 1233 1234;
  Add 1233 1232 1233; Mul 1234 378 1233; Mul 1235 384 1234; Mul 1236 392 1225; Add 1235 1235 1236;
  Sub 1235 1231 1235; Mul 1236 388 1235; Add 1237 1230 1236; Sub 1238 1227 1237; Mul 1239 401 1225;
  Mul 1240 397 1214; Mul 1241 48 1165; Mul 1242 55 1175; Sub 1241 1241 1242; Sub 1157 1157 1241;
  Mul 1241 19 1157; Mul 1242 396 1036; Sub 1241 1241 1242; Mul 1242 398 1035; Mul 1243 55 1146;
  Mul 1165 62 1165; Sub 1243 1243 1165; Sub 1163 1163 1243; Mul 1243 35 1163; Add 1242 1242 1243;
  Sub 1241 1241 1242; Mul 1242 369 1241; Add 1240 1240 1242; Mul 1242 400 1216; Mul 1243 396 1035;
  Mul 1157 35 1157; Add 1243 1243 1157; Mul 1163 19 1163; Mul 1157 398 1036; Sub 1163 1163 1157;
  Add 1243 1243 1163; Mul 1163 371 1243; Add 1242 1242 1163; Mul 1163 402 1178; Mul 1175 62 1175;
  Mul 1146 48 1146; Sub 1175 1175 1146; Sub 1129 1129 1175; Mul 1175 318 1129; Add 1163 1163 1175;
  Add 1242 1242 1163; Add 1240 1240 1242; Mul 1242 387 1232; Mul 1163 390 1228].
Definition casadi_f0_44 : list instruction := [
  Add 1242 1242 1163; Mul 1163 363 1220; Mul 1175 379 1174; Add 1163 1163 1175; Sub 1242 1242 1163;
  Add 1240 1240 1242; Mul 1242 213 1240; Mul 1242 378 1242; Mul 1163 384 1242; Add 1175 1239 1163;
  Mul 1146 397 1211; Mul 1157 358 1241; Add 1146 1146 1157; Mul 1157 400 1156; Mul 1165 364 1243;
  Add 1157 1157 1165; Mul 1165 402 1160; Mul 1244 310 1129; Add 1165 1165 1244; Add 1157 1157 1165;
  Add 1146 1146 1157; Mul 1157 405 1220; Mul 1165 362 1214; Mul 1244 369 1191; Add 1165 1165 1244;
  Mul 1244 365 1216; Mul 1245 371 1125; Add 1244 1244 1245; Mul 1245 367 1178; Mul 1246 318 1213;
  Add 1245 1245 1246; Add 1244 1244 1245; Add 1165 1165 1244; Mul 1244 379 1165; Add 1157 1157 1244;
  Mul 1244 387 1224; Mul 1245 383 1228; Add 1244 1244 1245; Sub 1157 1157 1244; Add 1146 1146 1157;
  Mul 1157 213 1146; Mul 1157 378 1157; Mul 1244 391 1157; Mul 1245 406 1233; Add 1246 1244 1245;
  Mul 1247 397 1218; Mul 1248 372 1241; Add 1247 1247 1248; Mul 1248 400 1221; Mul 1249 377 1243;
  Add 1248 1248 1249; Mul 1249 402 1184; Mul 1250 327 1129; Add 1249 1249 1250; Add 1248 1248 1249;
  Add 1247 1247 1248; Mul 1248 363 1224; Mul 1249 383 1174; Add 1248 1248 1249; Mul 1249 405 1232;
  Mul 1250 390 1165; Add 1249 1249 1250; Sub 1248 1248 1249; Add 1247 1247 1248; Mul 1248 213 1247;
  Mul 1248 378 1248; Mul 1249 381 1248; Mul 1250 409 1222; Add 1251 1249 1250; Add 1163 1163 1239;
  Add 1239 1251 1163; Add 1246 1246 1239; Sub 1252 1175 1246; Add 1245 1245 1244; Add 1250 1250 1249;
  Add 1175 1250 1175; Add 1245 1245 1175; Sub 1163 1163 1245; Add 1252 1252 1163; Add 1236 1236 1230;
  Add 1226 1226 1212; Sub 1212 1236 1226; Add 1252 1252 1212; Sub 1238 1238 1252; Mul 1252 413 1211;
  Sub 1212 1191 1021; Mul 1230 358 1212; Add 1252 1252 1230; Mul 1230 16 1156; Mul 1163 364 1025;
  Sub 1230 1230 1163; Mul 1163 15 1160; Mul 1249 310 1026; Add 1163 1163 1249; Sub 1230 1230 1163;
  Mul 1163 419 1230; Mul 1249 16 1125; Mul 1244 365 1025; Sub 1249 1249 1244; Mul 1244 367 1026;
  Mul 1253 15 1213; Add 1244 1244 1253; Sub 1249 1249 1244; Mul 1244 418 1249; Add 1163 1163 1244;
  Mul 1244 15 1156; Mul 1253 364 1026; Add 1244 1244 1253; Mul 1253 16 1160; Mul 1254 310 1025;
  Sub 1253 1253 1254; Add 1244 1244 1253; Mul 1253 422 1244; Mul 1254 365 1026; Mul 1255 15 1125;
  Add 1254 1254 1255; Mul 1255 16 1213; Mul 1256 367 1025; Sub 1255 1255 1256; Add 1254 1254 1255;
  Mul 1255 421 1254; Add 1253 1253 1255; Add 1163 1163 1253; Add 1252 1252 1163; Mul 1163 213 1252;
  Mul 1253 439 1163; Mul 1255 423 1214; Mul 1256 16 1216; Mul 1257 371 1025; Sub 1256 1256 1257;
  Mul 1257 15 1178; Mul 1258 318 1026; Add 1257 1257 1258; Sub 1256 1256 1257; Mul 1257 40 1256;
  Mul 1258 15 1216; Mul 1259 371 1026; Add 1258 1258 1259; Mul 1259 16 1178; Mul 1260 318 1025;
  Sub 1259 1259 1260; Add 1258 1258 1259; Mul 1259 42 1258; Add 1257 1257 1259; Add 1255 1255 1257;
  Mul 1257 372 1255; Mul 1259 424 1218; Add 1257 1257 1259; Mul 1259 40 1214].
Definition casadi_f0_45 : list instruction := [
  Mul 1260 14 1256; Mul 1261 18 1258; Add 1260 1260 1261; Add 1259 1259 1260; Mul 1260 429 1259;
  Mul 1261 16 1221; Mul 1262 377 1025; Sub 1261 1261 1262; Mul 1262 15 1184; Mul 1263 327 1026;
  Add 1262 1262 1263; Sub 1261 1261 1262; Mul 1262 428 1261; Add 1260 1260 1262; Add 1257 1257 1260;
  Mul 1260 43 1230; Mul 1262 431 1211; Sub 1260 1260 1262; Add 1257 1257 1260; Mul 1260 198 1218;
  Mul 1262 25 1221; Mul 1263 32 1184; Add 1262 1262 1263; Add 1260 1260 1262; Add 1260 1220 1260;
  Mul 1262 433 1218; Mul 1263 26 1261; Mul 1264 15 1221; Mul 1265 377 1026; Add 1264 1264 1265;
  Mul 1265 16 1184; Mul 1266 327 1025; Sub 1265 1265 1266; Add 1264 1264 1265; Mul 1265 28 1264;
  Add 1263 1263 1265; Add 1262 1262 1263; Add 1262 1260 1262; Mul 1263 430 1262; Mul 1263 438 1263;
  Mul 1265 198 1214; Mul 1266 25 1216; Mul 1267 32 1178; Add 1266 1266 1267; Add 1265 1265 1266;
  Add 1265 1224 1265; Mul 1266 433 1214; Mul 1267 26 1256; Mul 1268 28 1258; Add 1267 1267 1268;
  Add 1266 1266 1267; Add 1266 1265 1266; Mul 1267 435 1266; Add 1263 1263 1267; Sub 1263 1257 1263;
  Mul 1267 420 1263; Add 1268 1253 1267; Mul 1269 413 1218; Mul 1270 372 1212; Add 1269 1269 1270;
  Mul 1270 419 1261; Mul 1271 429 1249; Add 1270 1270 1271; Mul 1271 422 1264; Mul 1272 436 1254;
  Add 1271 1271 1272; Add 1270 1270 1271; Add 1269 1269 1270; Mul 1270 213 1269; Mul 1271 447 1270;
  Mul 1272 358 1255; Mul 1273 424 1211; Add 1272 1272 1273; Mul 1273 418 1259; Mul 1274 428 1230;
  Add 1273 1273 1274; Add 1272 1272 1273; Mul 1273 43 1261; Mul 1274 431 1218; Sub 1273 1273 1274;
  Sub 1272 1272 1273; Mul 1273 198 1211; Mul 1274 25 1156; Mul 1275 32 1160; Add 1274 1274 1275;
  Add 1273 1273 1274; Add 1273 1232 1273; Mul 1274 433 1211; Mul 1275 26 1230; Mul 1276 28 1244;
  Add 1275 1275 1276; Add 1274 1274 1275; Add 1274 1273 1274; Mul 1275 430 1274; Mul 1276 438 1275;
  Mul 1277 446 1266; Add 1276 1276 1277; Sub 1276 1272 1276; Mul 1277 442 1276; Add 1278 1271 1277;
  Sub 1279 1268 1278; Mul 1280 455 1266; Mul 1281 450 1214; Mul 1282 25 1213; Mul 1283 32 1125;
  Sub 1282 1282 1283; Sub 1241 1241 1282; Mul 1282 369 1241; Add 1281 1281 1282; Mul 1282 453 1256;
  Mul 1283 32 1191; Mul 1213 198 1213; Sub 1283 1283 1213; Sub 1243 1243 1283; Mul 1283 16 1243;
  Mul 1213 452 1025; Sub 1283 1283 1213; Mul 1213 454 1026; Mul 1125 198 1125; Mul 1191 25 1191;
  Sub 1125 1125 1191; Sub 1129 1129 1125; Mul 1125 15 1129; Add 1213 1213 1125; Sub 1283 1283 1213;
  Mul 1213 425 1283; Add 1282 1282 1213; Mul 1213 456 1258; Mul 1125 452 1026; Mul 1243 15 1243;
  Add 1125 1125 1243; Mul 1129 16 1129; Mul 1243 454 1025; Sub 1129 1129 1243; Add 1125 1125 1129;
  Mul 1129 427 1125; Add 1213 1213 1129; Add 1282 1282 1213; Add 1281 1281 1282; Mul 1282 441 1273;
  Mul 1213 444 1269; Add 1282 1282 1213; Mul 1213 417 1260; Mul 1129 432 1252; Add 1213 1213 1129;
  Sub 1282 1282 1213; Add 1281 1281 1282; Mul 1282 213 1281; Mul 1282 430 1282].
Definition casadi_f0_46 : list instruction := [
  Mul 1213 438 1282; Add 1129 1280 1213; Mul 1243 450 1211; Mul 1191 358 1241; Add 1243 1243 1191;
  Mul 1191 453 1230; Mul 1284 418 1283; Add 1191 1191 1284; Mul 1244 456 1244; Mul 1284 421 1125;
  Add 1244 1244 1284; Add 1191 1191 1244; Add 1243 1243 1191; Mul 1191 459 1260; Mul 1244 413 1214;
  Mul 1212 369 1212; Add 1244 1244 1212; Mul 1212 419 1256; Mul 1249 425 1249; Add 1212 1212 1249;
  Mul 1258 422 1258; Mul 1254 427 1254; Add 1258 1258 1254; Add 1212 1212 1258; Add 1244 1244 1212;
  Mul 1212 432 1244; Add 1191 1191 1212; Mul 1212 441 1265; Mul 1258 437 1269; Add 1212 1212 1258;
  Sub 1191 1191 1212; Add 1243 1243 1191; Mul 1191 213 1243; Mul 1191 430 1191; Mul 1212 445 1191;
  Mul 1258 460 1274; Add 1254 1212 1258; Mul 1249 450 1218; Mul 1241 372 1241; Add 1249 1249 1241;
  Mul 1241 453 1261; Mul 1283 429 1283; Add 1241 1241 1283; Mul 1283 456 1264; Mul 1125 436 1125;
  Add 1283 1283 1125; Add 1241 1241 1283; Add 1249 1249 1241; Mul 1241 417 1265; Mul 1283 437 1252;
  Add 1241 1241 1283; Mul 1283 459 1273; Mul 1125 444 1244; Add 1283 1283 1125; Sub 1241 1241 1283;
  Add 1249 1249 1241; Mul 1241 213 1249; Mul 1241 430 1241; Mul 1283 434 1241; Mul 1125 463 1262;
  Add 1284 1283 1125; Add 1213 1213 1280; Add 1280 1284 1213; Add 1254 1254 1280; Sub 1285 1129 1254;
  Add 1258 1258 1212; Add 1125 1125 1283; Add 1129 1125 1129; Add 1258 1258 1129; Sub 1213 1213 1258;
  Add 1285 1285 1213; Add 1277 1277 1271; Add 1267 1267 1253; Sub 1253 1277 1267; Add 1285 1285 1253;
  Sub 1279 1279 1285; Add 1238 1238 1279; Add 1197 1197 1238; Add 1153 1153 1197; Add 1098 1098 1153;
  Mul 1098 0 1098; Mul 1153 235 1016; Add 1098 1098 1153; Mul 1131 261 1131; Mul 1153 262 1130;
  Add 1131 1131 1153; Mul 1177 315 1177; Mul 1153 316 1176; Add 1177 1177 1153; Mul 1215 369 1215;
  Mul 1153 370 1214; Add 1215 1215 1153; Mul 1219 371 1219; Mul 1153 375 1216; Add 1219 1219 1153;
  Add 1215 1215 1219; Mul 1255 369 1255; Mul 1219 424 1214; Add 1255 1255 1219; Mul 1259 425 1259;
  Mul 1219 428 1256; Add 1259 1259 1219; Add 1255 1255 1259; Add 1259 1215 1255; Add 480 480 480;
  Sub 1219 1233 1274; Mul 1153 480 1219; Add 1197 482 482; Sub 1285 1222 1262; Mul 1253 1197 1285;
  Add 1271 1153 1253; Mul 1271 20 1271; Add 1259 1259 1271; Add 1271 1177 1259; Add 487 487 487;
  Mul 1213 485 1233; Mul 1283 50 1274; Add 1213 1213 1283; Sub 1283 1088 1213; Mul 1212 487 1283;
  Add 1286 490 490; Mul 1287 485 1222; Mul 1288 50 1262; Add 1287 1287 1288; Sub 1288 1183 1287;
  Mul 1289 1286 1288; Add 1290 1212 1289; Mul 1290 37 1290; Add 1271 1271 1290; Add 1290 1131 1271;
  Add 495 495 495; Mul 1291 493 1088; Mul 1292 83 1213; Add 1291 1291 1292; Sub 1292 1135 1291;
  Mul 1293 495 1292; Add 1294 498 498; Mul 1295 493 1183; Mul 1296 83 1287; Add 1295 1295 1296;
  Sub 1296 1137 1295; Mul 1297 1294 1296; Add 1298 1293 1297; Mul 1298 80 1298; Add 1290 1290 1298;
  Mul 1298 237 1069; Mul 1112 113 1112; Sub 1298 1298 1112; Sub 1112 1290 1298].
Definition casadi_f0_47 : list instruction := [
  Add 1299 506 506; Mul 1300 501 1137; Mul 1301 104 1295; Add 1300 1300 1301; Sub 1301 1100 1300;
  Mul 1302 1299 1301; Add 503 503 503; Mul 1303 501 1135; Mul 1304 104 1291; Add 1303 1303 1304;
  Add 1304 1108 1303; Mul 1305 503 1304; Sub 1306 1302 1305; Mul 1306 100 1306; Add 1112 1112 1306;
  Mul 1112 508 1112; Mul 1306 216 1092; Mul 1307 219 1091; Sub 1306 1306 1307; Mul 1307 215 1103;
  Mul 1308 227 1084; Add 1307 1307 1308; Add 1306 1306 1307; Mul 1307 500 1306; Add 1112 1112 1307;
  Add 1307 1231 1272; Mul 1219 20 1219; Mul 1308 512 1219; Sub 1309 1225 1266; Mul 1310 511 1309;
  Add 1308 1308 1310; Sub 1307 1307 1308; Add 1308 1192 1307; Mul 1283 37 1283; Mul 1310 516 1283;
  Mul 1311 485 1225; Mul 1312 50 1266; Add 1311 1311 1312; Sub 1312 1132 1311; Mul 1313 514 1312;
  Add 1310 1310 1313; Sub 1308 1308 1310; Add 1310 1147 1308; Mul 1292 80 1292; Mul 1313 520 1292;
  Mul 1314 493 1132; Mul 1315 83 1311; Add 1314 1314 1315; Sub 1315 1140 1314; Mul 1316 518 1315;
  Add 1313 1313 1316; Sub 1310 1310 1313; Add 1313 1111 1310; Mul 1304 100 1304; Mul 1316 524 1304;
  Mul 1317 501 1140; Mul 1318 104 1314; Add 1317 1317 1318; Add 1318 1115 1317; Mul 1319 522 1318;
  Add 1316 1316 1319; Add 1313 1313 1316; Mul 1316 526 1313; Mul 1319 221 1069; Mul 1094 113 1094;
  Add 1319 1319 1094; Mul 1093 114 1093; Mul 1094 218 1071; Sub 1093 1093 1094; Add 1319 1319 1093;
  Mul 1093 216 1319; Mul 1094 525 1091; Sub 1093 1093 1094; Mul 1094 521 1093; Add 1316 1316 1094;
  Add 1094 1217 1257; Mul 1320 20 1285; Mul 1320 512 1320; Mul 1321 529 1309; Add 1320 1320 1321;
  Sub 1094 1094 1320; Add 1320 1179 1094; Mul 1321 37 1288; Mul 1321 516 1321; Mul 1322 531 1312;
  Add 1321 1321 1322; Sub 1320 1320 1321; Add 1321 1133 1320; Mul 1322 80 1296; Mul 1322 520 1322;
  Mul 1323 533 1315; Add 1322 1322 1323; Sub 1321 1321 1322; Add 1322 1120 1321; Mul 1323 100 1301;
  Mul 1323 524 1323; Mul 1324 535 1318; Sub 1323 1323 1324; Sub 1322 1322 1323; Mul 1323 536 1322;
  Mul 1324 215 1319; Mul 1325 525 1084; Add 1324 1324 1325; Mul 1325 534 1324; Add 1323 1323 1325;
  Add 1316 1316 1323; Sub 1112 1112 1316; Mul 1316 120 1303; Mul 1323 527 1108; Sub 1316 1316 1323;
  Mul 1323 539 1316; Mul 1325 120 1317; Mul 1326 527 1115; Sub 1325 1325 1326; Mul 1326 526 1325;
  Mul 1327 538 1093; Add 1326 1326 1327; Mul 1327 508 1316; Mul 1328 537 1306; Add 1327 1327 1328;
  Add 1326 1326 1327; Mul 1327 540 1319; Mul 1328 214 1091; Mul 1329 525 1328; Sub 1327 1327 1329;
  Sub 1326 1326 1327; Mul 1326 141 1326; Mul 1329 537 1326; Add 1323 1323 1329; Mul 1329 527 1100;
  Mul 1330 120 1300; Add 1329 1329 1330; Mul 1330 546 1329; Mul 1331 544 1319; Mul 1332 214 1084;
  Mul 1333 525 1332; Add 1331 1331 1333; Mul 1333 508 1329; Mul 1334 543 1306; Add 1333 1333 1334;
  Mul 1334 536 1325; Mul 1335 538 1324; Add 1334 1334 1335; Add 1333 1333 1334; Sub 1333 1331 1333;
  Mul 1333 141 1333; Mul 1334 543 1333; Add 1330 1330 1334; Sub 1323 1323 1330].
Definition casadi_f0_48 : list instruction := [
  Add 1112 1112 1323; Mul 1323 553 1122; Mul 1330 238 1099; Mul 1104 236 1104; Mul 1334 144 1091;
  Sub 1104 1104 1334; Add 1330 1330 1104; Mul 1104 224 1330; Mul 1334 542 1099; Add 1104 1104 1334;
  Mul 1099 144 1099; Mul 1334 549 1091; Sub 1099 1099 1334; Mul 1334 216 1099; Mul 1335 548 1091;
  Sub 1334 1334 1335; Add 1104 1104 1334; Add 1334 231 231; Mul 1335 1334 1108; Add 1336 242 242;
  Mul 1337 1336 1115; Add 1338 1335 1337; Mul 1338 212 1338; Sub 1338 1104 1338; Mul 1339 249 1338;
  Add 1340 1323 1339; Mul 1341 556 1117; Mul 1330 220 1330; Mul 1096 542 1096; Sub 1330 1330 1096;
  Mul 1099 215 1099; Mul 1096 548 1084; Add 1099 1099 1096; Sub 1330 1330 1099; Mul 1099 241 1100;
  Mul 1113 225 1113; Sub 1099 1099 1113; Sub 1099 1330 1099; Mul 1113 244 1099; Add 1096 1341 1113;
  Sub 1340 1340 1096; Mul 1096 242 1097; Mul 1342 223 1115; Sub 1096 1096 1342; Add 1342 225 225;
  Mul 1343 1342 1100; Sub 1335 1343 1335; Mul 1335 212 1335; Sub 1335 1335 1298; Mul 1344 249 1335;
  Mul 1345 551 1122; Add 1346 1344 1345; Mul 1347 560 1114; Mul 1348 213 1319; Mul 1349 243 1348;
  Add 1350 1347 1349; Sub 1346 1346 1350; Add 1346 1096 1346; Sub 1340 1340 1346; Sub 1346 1298 1104;
  Mul 1350 219 1346; Mul 1351 557 1092; Add 1350 1350 1351; Mul 1351 227 1330; Mul 1352 555 1103;
  Add 1351 1351 1352; Add 1350 1350 1351; Mul 1351 525 1111; Mul 1352 239 1319; Add 1351 1351 1352;
  Add 1350 1350 1351; Mul 1351 340 1100; Mul 1352 231 1103; Mul 1353 227 1108; Sub 1352 1352 1353;
  Mul 1353 219 1100; Mul 1354 225 1092; Add 1353 1353 1354; Sub 1352 1352 1353; Mul 1352 212 1352;
  Mul 1353 225 1352; Add 1351 1351 1353; Mul 1353 242 1092; Mul 1354 219 1115; Sub 1353 1353 1354;
  Mul 1354 231 1319; Mul 1355 525 1108; Sub 1354 1354 1355; Sub 1353 1353 1354; Sub 1353 1095 1353;
  Mul 1353 212 1353; Mul 1354 242 1353; Mul 1355 559 1115; Sub 1354 1354 1355; Add 1351 1351 1354;
  Sub 1350 1350 1351; Mul 1350 213 1350; Sub 1340 1340 1350; Mul 1351 567 1126; Mul 1354 260 1134;
  Mul 1355 263 1138; Mul 1356 127 1091; Sub 1355 1355 1356; Add 1354 1354 1355; Mul 1355 265 1354;
  Mul 1356 547 1134; Add 1355 1355 1356; Mul 1134 127 1134; Mul 1138 268 1138; Mul 1356 563 1091;
  Sub 1138 1138 1356; Add 1134 1134 1138; Mul 1138 216 1134; Mul 1356 562 1091; Sub 1138 1138 1356;
  Add 1355 1355 1138; Add 1138 282 282; Mul 1356 1138 1135; Add 1357 275 275; Mul 1358 1357 1140;
  Add 1359 1356 1358; Mul 1359 269 1359; Add 1359 1355 1359; Mul 1360 258 1359; Add 1361 1351 1360;
  Mul 1362 570 1145; Mul 1354 253 1354; Mul 1116 547 1116; Add 1354 1354 1116; Mul 1134 215 1134;
  Mul 1116 562 1084; Add 1134 1134 1116; Sub 1354 1354 1134; Mul 1130 135 1130; Sub 1354 1354 1130;
  Mul 1149 271 1149; Mul 1130 283 1137; Add 1149 1149 1130; Sub 1149 1354 1149; Mul 1130 279 1149;
  Add 1134 1362 1130; Sub 1361 1361 1134; Mul 1134 300 1140; Mul 1116 275 1169; Add 1363 1134 1116;
  Mul 1364 271 1159; Mul 1365 292 1137; Add 1366 1364 1365; Add 1363 1363 1366].
Definition casadi_f0_49 : list instruction := [
  Add 1366 271 271; Mul 1367 1366 1137; Add 1356 1356 1367; Mul 1356 269 1356; Add 1356 1131 1356;
  Mul 1368 258 1356; Mul 1369 565 1126; Add 1370 1368 1369; Mul 1371 574 1150; Mul 1372 213 1164;
  Mul 1373 284 1372; Add 1374 1371 1373; Sub 1370 1370 1374; Add 1363 1363 1370; Sub 1361 1361 1363;
  Mul 1363 571 1121; Add 1370 1355 1131; Mul 1374 255 1370; Sub 1363 1363 1374; Mul 1374 278 1354;
  Mul 1375 569 1144; Add 1374 1374 1375; Add 1363 1363 1374; Mul 1374 296 1147; Mul 1375 280 1164;
  Add 1374 1374 1375; Add 1363 1363 1374; Mul 1374 471 1137; Mul 1375 278 1135; Mul 1376 282 1144;
  Add 1375 1375 1376; Mul 1376 255 1137; Mul 1377 271 1121; Add 1376 1376 1377; Sub 1375 1375 1376;
  Sub 1375 1155 1375; Mul 1375 269 1375; Mul 1376 271 1375; Add 1374 1374 1376; Mul 1376 573 1140;
  Mul 1377 255 1140; Mul 1378 275 1121; Add 1377 1377 1378; Mul 1378 296 1135; Mul 1379 282 1164;
  Add 1378 1378 1379; Sub 1377 1377 1378; Sub 1377 1168 1377; Mul 1377 269 1377; Mul 1378 275 1377;
  Add 1376 1376 1378; Sub 1374 1374 1376; Add 1363 1363 1374; Mul 1363 213 1363; Sub 1361 1361 1363;
  Mul 1374 581 1170; Mul 1376 314 1180; Mul 1378 317 1184; Mul 1379 128 1091; Sub 1378 1378 1379;
  Add 1376 1376 1378; Mul 1378 319 1376; Mul 1379 561 1180; Add 1378 1378 1379; Mul 1180 128 1180;
  Mul 1379 322 1184; Mul 1380 577 1091; Sub 1379 1379 1380; Add 1180 1180 1379; Mul 1379 216 1180;
  Mul 1380 576 1091; Sub 1379 1379 1380; Add 1378 1378 1379; Add 1379 336 336; Mul 1380 1379 1088;
  Add 1381 329 329; Mul 1382 1381 1132; Add 1383 1380 1382; Mul 1383 323 1383; Add 1383 1378 1383;
  Mul 1384 312 1383; Add 1385 1374 1384; Mul 1386 584 1190; Mul 1376 304 1376; Mul 1173 561 1173;
  Add 1376 1376 1173; Mul 1180 215 1180; Mul 1173 576 1084; Add 1180 1180 1173; Sub 1376 1376 1180;
  Mul 1176 131 1176; Sub 1376 1376 1176; Mul 1193 325 1193; Mul 1176 337 1183; Add 1193 1193 1176;
  Sub 1193 1376 1193; Mul 1176 333 1193; Add 1180 1386 1176; Sub 1385 1385 1180; Mul 1180 354 1132;
  Mul 1173 329 1207; Add 1387 1180 1173; Mul 1388 325 1201; Mul 1389 346 1183; Add 1390 1388 1389;
  Add 1387 1387 1390; Add 1390 325 325; Mul 1391 1390 1183; Add 1380 1380 1391; Mul 1380 323 1380;
  Add 1380 1177 1380; Mul 1392 312 1380; Mul 1393 579 1170; Add 1394 1392 1393; Mul 1395 588 1194;
  Mul 1396 213 1204; Mul 1397 338 1396; Add 1398 1395 1397; Sub 1394 1394 1398; Add 1387 1387 1394;
  Sub 1385 1385 1387; Mul 1387 585 1128; Add 1394 1378 1177; Mul 1398 309 1394; Sub 1387 1387 1398;
  Mul 1398 332 1376; Mul 1399 583 1189; Add 1398 1398 1399; Add 1387 1387 1398; Mul 1398 349 1192;
  Mul 1399 334 1204; Add 1398 1398 1399; Add 1387 1387 1398; Mul 1398 473 1183; Mul 1399 332 1088;
  Mul 1400 336 1189; Add 1399 1399 1400; Mul 1400 309 1183; Mul 1401 325 1128; Add 1400 1400 1401;
  Sub 1399 1399 1400; Sub 1399 1199 1399; Mul 1399 323 1399; Mul 1400 325 1399; Add 1398 1398 1400;
  Mul 1400 587 1132; Mul 1401 309 1132; Mul 1402 329 1128; Add 1401 1401 1402].
Definition casadi_f0_50 : list instruction := [
  Mul 1402 349 1088; Mul 1403 336 1204; Add 1402 1402 1403; Sub 1401 1401 1402; Sub 1401 1206 1401;
  Mul 1401 323 1401; Mul 1402 329 1401; Add 1400 1400 1402; Sub 1398 1398 1400; Add 1387 1387 1398;
  Mul 1387 213 1387; Sub 1385 1385 1387; Mul 1398 594 1208; Mul 1400 368 1218; Mul 1402 39 1221;
  Mul 1403 373 1184; Add 1402 1402 1403; Add 1400 1400 1402; Mul 1402 372 1400; Mul 1403 575 1218;
  Add 1402 1402 1403; Mul 1403 39 1218; Mul 1404 376 1221; Add 1403 1403 1404; Mul 1404 377 1403;
  Mul 1221 590 1221; Add 1404 1404 1221; Add 1402 1402 1404; Add 1404 391 391; Mul 1221 1404 1233;
  Add 1405 384 384; Mul 1406 1405 1225; Add 1407 1221 1406; Mul 1407 378 1407; Add 1407 1402 1407;
  Mul 1408 366 1407; Add 1409 1398 1408; Mul 1410 597 1229; Mul 1400 358 1400; Mul 1411 575 1211;
  Add 1400 1400 1411; Mul 1403 364 1403; Mul 1156 590 1156; Add 1403 1403 1156; Add 1400 1400 1403;
  Mul 1216 69 1216; Add 1400 1400 1216; Mul 1234 381 1234; Mul 1216 392 1222; Add 1234 1234 1216;
  Sub 1234 1400 1234; Mul 1216 388 1234; Add 1403 1410 1216; Sub 1409 1409 1403; Mul 1403 409 1225;
  Mul 1156 384 1248; Add 1411 1403 1156; Mul 1412 381 1242; Mul 1413 401 1222; Add 1414 1412 1413;
  Add 1411 1411 1414; Add 1414 381 381; Mul 1415 1414 1222; Add 1221 1221 1415; Mul 1221 378 1221;
  Add 1221 1215 1221; Mul 1416 366 1221; Mul 1417 592 1208; Add 1418 1416 1417; Mul 1419 601 1235;
  Mul 1420 213 1165; Mul 1421 393 1420; Add 1422 1419 1421; Sub 1418 1418 1422; Add 1411 1411 1418;
  Sub 1409 1409 1411; Mul 1411 598 1174; Add 1418 1402 1215; Mul 1422 363 1418; Sub 1411 1411 1422;
  Mul 1422 387 1400; Mul 1423 596 1228; Add 1422 1422 1423; Add 1411 1411 1422; Mul 1422 405 1231;
  Mul 1423 389 1165; Add 1422 1422 1423; Add 1411 1411 1422; Mul 1422 475 1222; Mul 1423 387 1233;
  Mul 1424 391 1228; Add 1423 1423 1424; Mul 1424 363 1222; Mul 1425 381 1174; Add 1424 1424 1425;
  Sub 1423 1423 1424; Sub 1423 1240 1423; Mul 1423 378 1423; Mul 1424 381 1423; Add 1422 1422 1424;
  Mul 1424 600 1225; Mul 1425 363 1225; Mul 1426 384 1174; Add 1425 1425 1426; Mul 1426 405 1233;
  Mul 1427 391 1165; Add 1426 1426 1427; Sub 1425 1425 1426; Sub 1425 1247 1425; Mul 1425 378 1425;
  Mul 1426 384 1425; Add 1424 1424 1426; Sub 1422 1422 1424; Add 1411 1411 1422; Mul 1411 213 1411;
  Sub 1409 1409 1411; Mul 1422 607 1163; Mul 1424 423 1218; Mul 1426 40 1261; Mul 1427 42 1264;
  Add 1426 1426 1427; Add 1424 1424 1426; Mul 1426 372 1424; Mul 1427 589 1218; Add 1426 1426 1427;
  Mul 1427 40 1218; Mul 1428 14 1261; Mul 1264 18 1264; Add 1428 1428 1264; Add 1427 1427 1428;
  Mul 1428 429 1427; Mul 1261 603 1261; Add 1428 1428 1261; Add 1426 1426 1428; Add 1428 445 445;
  Mul 1261 1428 1274; Add 1264 438 438; Mul 1429 1264 1266; Add 1430 1261 1429; Mul 1430 430 1430;
  Add 1430 1426 1430; Mul 1431 420 1430; Add 1432 1422 1431; Mul 1433 610 1270; Mul 1424 358 1424;
  Mul 1434 589 1211; Add 1424 1424 1434; Mul 1427 418 1427; Mul 1230 603 1230].
Definition casadi_f0_51 : list instruction := [
  Add 1427 1427 1230; Add 1424 1424 1427; Mul 1256 43 1256; Mul 1427 431 1214; Sub 1256 1256 1427;
  Add 1424 1424 1256; Mul 1275 434 1275; Mul 1256 446 1262; Add 1275 1275 1256; Sub 1275 1424 1275;
  Mul 1256 442 1275; Add 1427 1433 1256; Sub 1432 1432 1427; Mul 1427 463 1266; Mul 1230 438 1241;
  Add 1434 1427 1230; Mul 1435 434 1282; Mul 1436 455 1262; Add 1437 1435 1436; Add 1434 1434 1437;
  Add 1437 434 434; Mul 1438 1437 1262; Add 1261 1261 1438; Mul 1261 430 1261; Add 1261 1255 1261;
  Mul 1439 420 1261; Mul 1440 605 1163; Add 1441 1439 1440; Mul 1442 614 1276; Mul 1443 213 1244;
  Mul 1444 447 1443; Add 1445 1442 1444; Sub 1441 1441 1445; Add 1434 1434 1441; Sub 1432 1432 1434;
  Mul 1434 13 1252; Add 1441 1426 1255; Mul 1445 417 1441; Sub 1434 1434 1445; Mul 1445 441 1424;
  Mul 1446 609 1269; Add 1445 1445 1446; Add 1434 1434 1445; Mul 1445 459 1272; Mul 1446 443 1244;
  Add 1445 1445 1446; Add 1434 1434 1445; Mul 1445 477 1262; Mul 1446 441 1274; Mul 1447 445 1269;
  Add 1446 1446 1447; Mul 1447 417 1262; Mul 1448 434 1252; Add 1447 1447 1448; Sub 1446 1446 1447;
  Sub 1446 1281 1446; Mul 1446 430 1446; Mul 1447 434 1446; Add 1445 1445 1447; Mul 1447 611 1266;
  Mul 1448 417 1266; Mul 1449 438 1252; Add 1448 1448 1449; Mul 1449 459 1274; Mul 1450 445 1244;
  Add 1449 1449 1450; Sub 1448 1448 1449; Sub 1448 1249 1448; Mul 1448 430 1448; Mul 1449 438 1448;
  Add 1447 1447 1449; Sub 1445 1445 1447; Add 1434 1434 1445; Mul 1434 213 1434; Sub 1432 1432 1434;
  Add 1409 1409 1432; Add 1385 1385 1409; Add 1361 1361 1385; Add 1340 1340 1361; Mul 1340 216 1340;
  Mul 1445 554 1091; Sub 1340 1340 1445; Mul 1445 242 1106; Mul 1447 230 1115; Sub 1445 1445 1447;
  Mul 1447 560 1110; Mul 1449 248 1348; Add 1450 1447 1449; Mul 1335 244 1335; Mul 1451 551 1117;
  Add 1452 1335 1451; Sub 1450 1450 1452; Sub 1450 1445 1450; Mul 1452 556 1122; Mul 1453 249 1099;
  Add 1454 1452 1453; Mul 1455 558 1117; Sub 1343 1343 1337; Mul 1343 212 1343; Add 1343 1346 1343;
  Mul 1337 244 1343; Add 1456 1455 1337; Sub 1454 1454 1456; Add 1450 1450 1454; Mul 1454 219 1330;
  Mul 1456 555 1092; Add 1454 1454 1456; Mul 1456 227 1104; Mul 1457 550 1103; Add 1456 1456 1457;
  Add 1454 1454 1456; Mul 1456 525 1120; Mul 1457 246 1319; Add 1456 1456 1457; Add 1454 1454 1456;
  Mul 1456 231 1352; Mul 1457 340 1108; Sub 1456 1456 1457; Mul 1457 525 1100; Mul 1458 225 1319;
  Add 1457 1457 1458; Mul 1458 242 1103; Mul 1459 227 1115; Sub 1458 1458 1459; Sub 1457 1457 1458;
  Add 1457 1105 1457; Mul 1457 212 1457; Mul 1458 242 1457; Mul 1459 616 1115; Sub 1458 1458 1459;
  Sub 1456 1456 1458; Add 1454 1454 1456; Mul 1454 213 1454; Add 1450 1450 1454; Mul 1456 570 1126;
  Mul 1458 258 1149; Add 1459 1456 1458; Mul 1460 572 1145; Add 1367 1367 1358; Mul 1367 269 1367;
  Sub 1367 1367 1370; Mul 1358 279 1367; Add 1461 1460 1358; Sub 1459 1459 1461; Mul 1461 297 1140;
  Mul 1462 275 1162; Add 1463 1461 1462; Mul 1464 282 1159; Mul 1465 292 1135].
Definition casadi_f0_52 : list instruction := [
  Add 1466 1464 1465; Add 1463 1463 1466; Mul 1466 574 1139; Mul 1467 276 1372; Add 1468 1466 1467;
  Mul 1356 279 1356; Mul 1469 565 1145; Add 1470 1356 1469; Sub 1468 1468 1470; Add 1463 1463 1468;
  Sub 1459 1459 1463; Mul 1463 255 1354; Mul 1468 569 1121; Add 1463 1463 1468; Mul 1468 278 1355;
  Mul 1470 564 1144; Add 1468 1468 1470; Add 1463 1463 1468; Mul 1468 296 1133; Mul 1470 266 1164;
  Add 1468 1468 1470; Add 1463 1463 1468; Mul 1468 617 1140; Mul 1470 296 1137; Mul 1471 271 1164;
  Add 1470 1470 1471; Mul 1471 278 1140; Mul 1472 275 1144; Add 1471 1471 1472; Sub 1470 1470 1471;
  Sub 1470 1161 1470; Mul 1470 269 1470; Mul 1471 275 1470; Add 1468 1468 1471; Mul 1471 471 1135;
  Mul 1472 282 1375; Add 1471 1471 1472; Sub 1468 1468 1471; Add 1463 1463 1468; Mul 1463 213 1463;
  Add 1459 1459 1463; Mul 1468 584 1170; Mul 1471 312 1193; Add 1472 1468 1471; Mul 1473 586 1190;
  Add 1391 1391 1382; Mul 1391 323 1391; Sub 1391 1391 1394; Mul 1382 333 1391; Add 1474 1473 1382;
  Sub 1472 1472 1474; Mul 1474 351 1132; Mul 1475 329 1203; Add 1476 1474 1475; Mul 1477 336 1201;
  Mul 1478 346 1088; Add 1479 1477 1478; Add 1476 1476 1479; Mul 1479 588 1185; Mul 1480 330 1396;
  Add 1481 1479 1480; Mul 1380 333 1380; Mul 1482 579 1190; Add 1483 1380 1482; Sub 1481 1481 1483;
  Add 1476 1476 1481; Sub 1472 1472 1476; Mul 1476 309 1376; Mul 1481 583 1128; Add 1476 1476 1481;
  Mul 1481 332 1378; Mul 1483 578 1189; Add 1481 1481 1483; Add 1476 1476 1481; Mul 1481 349 1179;
  Mul 1483 320 1204; Add 1481 1481 1483; Add 1476 1476 1481; Mul 1481 619 1132; Mul 1483 349 1183;
  Mul 1484 325 1204; Add 1483 1483 1484; Mul 1484 332 1132; Mul 1485 329 1189; Add 1484 1484 1485;
  Sub 1483 1483 1484; Sub 1483 1202 1483; Mul 1483 323 1483; Mul 1484 329 1483; Add 1481 1481 1484;
  Mul 1484 473 1088; Mul 1485 336 1399; Add 1484 1484 1485; Sub 1481 1481 1484; Add 1476 1476 1481;
  Mul 1476 213 1476; Add 1472 1472 1476; Mul 1481 597 1208; Mul 1484 366 1234; Add 1485 1481 1484;
  Mul 1486 599 1229; Add 1415 1415 1406; Mul 1415 378 1415; Sub 1415 1415 1418; Mul 1406 388 1415;
  Add 1487 1486 1406; Sub 1485 1485 1487; Mul 1487 406 1225; Mul 1488 384 1157; Add 1489 1487 1488;
  Mul 1490 391 1242; Mul 1491 401 1233; Add 1492 1490 1491; Add 1489 1489 1492; Mul 1492 601 1223;
  Mul 1493 385 1420; Add 1494 1492 1493; Mul 1221 388 1221; Mul 1495 592 1229; Add 1496 1221 1495;
  Sub 1494 1494 1496; Add 1489 1489 1494; Sub 1485 1485 1489; Mul 1489 363 1400; Mul 1494 596 1174;
  Add 1489 1489 1494; Mul 1494 387 1402; Mul 1496 591 1228; Add 1494 1494 1496; Add 1489 1489 1494;
  Mul 1494 405 1217; Mul 1496 374 1165; Add 1494 1494 1496; Add 1489 1489 1494; Mul 1494 621 1225;
  Mul 1496 405 1222; Mul 1497 381 1165; Add 1496 1496 1497; Mul 1497 387 1225; Mul 1498 384 1228;
  Add 1497 1497 1498; Sub 1496 1496 1497; Sub 1496 1146 1496; Mul 1496 378 1496; Mul 1497 384 1496;
  Add 1494 1494 1497; Mul 1497 475 1233; Mul 1498 391 1423; Add 1497 1497 1498].
Definition casadi_f0_53 : list instruction := [
  Sub 1494 1494 1497; Add 1489 1489 1494; Mul 1489 213 1489; Add 1485 1485 1489; Mul 1494 610 1163;
  Mul 1497 420 1275; Add 1498 1494 1497; Mul 1499 612 1270; Add 1438 1438 1429; Mul 1438 430 1438;
  Sub 1438 1438 1441; Mul 1429 442 1438; Add 1500 1499 1429; Sub 1498 1498 1500; Mul 1500 460 1266;
  Mul 1501 438 1191; Add 1502 1500 1501; Mul 1503 445 1282; Mul 1504 455 1274; Add 1505 1503 1504;
  Add 1502 1502 1505; Mul 1505 614 1263; Mul 1506 439 1443; Add 1507 1505 1506; Mul 1261 442 1261;
  Mul 1508 605 1270; Add 1509 1261 1508; Sub 1507 1507 1509; Add 1502 1502 1507; Sub 1498 1498 1502;
  Mul 1502 417 1424; Mul 1507 609 1252; Add 1502 1502 1507; Mul 1507 441 1426; Mul 1509 604 1269;
  Add 1507 1507 1509; Add 1502 1502 1507; Mul 1507 459 1257; Mul 1509 426 1244; Add 1507 1507 1509;
  Add 1502 1502 1507; Mul 1507 623 1266; Mul 1509 459 1262; Mul 1510 434 1244; Add 1509 1509 1510;
  Mul 1510 441 1266; Mul 1511 438 1269; Add 1510 1510 1511; Sub 1509 1509 1510; Sub 1509 1243 1509;
  Mul 1509 430 1509; Mul 1510 438 1509; Add 1507 1507 1510; Mul 1510 477 1274; Mul 1511 445 1446;
  Add 1510 1510 1511; Sub 1507 1507 1510; Add 1502 1502 1507; Mul 1502 213 1502; Add 1498 1498 1502;
  Add 1485 1485 1498; Add 1472 1472 1485; Add 1459 1459 1472; Add 1450 1450 1459; Mul 1450 215 1450;
  Mul 1507 613 1084; Add 1450 1450 1507; Sub 1340 1340 1450; Mul 1450 212 1122; Mul 1507 242 1450;
  Mul 1510 624 1115; Sub 1507 1507 1510; Mul 1510 212 1348; Mul 1511 231 1510; Mul 1512 626 1108;
  Sub 1511 1511 1512; Add 1511 1097 1511; Sub 1507 1507 1511; Mul 1511 213 1353; Add 1512 1507 1511;
  Mul 1513 269 1126; Mul 1514 275 1513; Mul 1515 629 1140; Add 1516 1514 1515; Mul 1517 631 1135;
  Mul 1518 269 1372; Mul 1519 282 1518; Add 1520 1517 1519; Add 1520 1169 1520; Sub 1516 1516 1520;
  Mul 1520 213 1377; Add 1521 1516 1520; Mul 1522 323 1170; Mul 1523 329 1522; Mul 1524 634 1132;
  Add 1525 1523 1524; Mul 1526 636 1088; Mul 1527 323 1396; Mul 1528 336 1527; Add 1529 1526 1528;
  Add 1529 1207 1529; Sub 1525 1525 1529; Mul 1529 213 1401; Add 1530 1525 1529; Mul 1531 378 1208;
  Mul 1532 384 1531; Mul 1533 639 1225; Add 1534 1532 1533; Mul 1535 641 1233; Mul 1536 378 1420;
  Mul 1537 391 1536; Add 1538 1535 1537; Add 1538 1248 1538; Sub 1534 1534 1538; Mul 1538 213 1425;
  Add 1539 1534 1538; Mul 1540 430 1163; Mul 1541 438 1540; Mul 1542 644 1266; Add 1543 1541 1542;
  Mul 1544 646 1274; Mul 1545 430 1443; Mul 1546 445 1545; Add 1547 1544 1546; Add 1547 1241 1547;
  Sub 1543 1543 1547; Mul 1547 213 1448; Add 1548 1543 1547; Add 1539 1539 1548; Add 1530 1530 1539;
  Add 1521 1521 1530; Add 1512 1512 1521; Mul 1512 540 1512; Mul 1549 628 1328; Sub 1512 1512 1549;
  Mul 1549 212 1117; Mul 1550 242 1549; Mul 1551 650 1115; Sub 1550 1550 1551; Mul 1551 626 1100;
  Mul 1552 225 1510; Add 1551 1551 1552; Add 1551 1106 1551; Sub 1550 1550 1551; Mul 1551 213 1457;
  Add 1552 1550 1551; Mul 1553 631 1137; Mul 1554 271 1518; Add 1555 1553 1554].
Definition casadi_f0_54 : list instruction := [
  Sub 1555 1162 1555; Mul 1556 269 1145; Mul 1557 275 1556; Mul 1558 655 1140; Add 1559 1557 1558;
  Add 1555 1555 1559; Mul 1559 213 1470; Sub 1560 1555 1559; Mul 1561 636 1183; Mul 1562 325 1527;
  Add 1563 1561 1562; Sub 1563 1203 1563; Mul 1564 323 1190; Mul 1565 329 1564; Mul 1566 659 1132;
  Add 1567 1565 1566; Add 1563 1563 1567; Mul 1567 213 1483; Sub 1568 1563 1567; Mul 1569 641 1222;
  Mul 1570 381 1536; Add 1571 1569 1570; Sub 1571 1157 1571; Mul 1572 378 1229; Mul 1573 384 1572;
  Mul 1574 663 1225; Add 1575 1573 1574; Add 1571 1571 1575; Mul 1575 213 1496; Sub 1576 1571 1575;
  Mul 1577 646 1262; Mul 1578 434 1545; Add 1579 1577 1578; Sub 1579 1191 1579; Mul 1580 430 1270;
  Mul 1581 438 1580; Mul 1582 667 1266; Add 1583 1581 1582; Add 1579 1579 1583; Mul 1583 213 1509;
  Sub 1584 1579 1583; Add 1576 1576 1584; Add 1568 1568 1576; Add 1560 1560 1568; Add 1552 1552 1560;
  Mul 1552 544 1552; Mul 1585 653 1332; Add 1552 1552 1585; Add 1512 1512 1552; Sub 1340 1340 1512;
  Add 1112 1112 1340; Mul 1112 1 1112; Mul 1340 509 1017; Add 1112 1112 1340; Add 1098 1098 1112;
  Mul 1112 602 1310; Mul 1340 216 1164; Mul 1512 296 1091; Sub 1340 1340 1512; Mul 1512 517 1340;
  Add 1112 1112 1512; Mul 1512 670 1321; Mul 1552 215 1164; Mul 1585 296 1084; Add 1552 1552 1585;
  Mul 1585 532 1552; Add 1512 1512 1585; Add 1112 1112 1512; Mul 1290 671 1290; Mul 1512 216 1121;
  Mul 1585 255 1091; Sub 1512 1512 1585; Mul 1585 215 1144; Mul 1586 278 1084; Add 1585 1585 1586;
  Add 1512 1512 1585; Mul 1585 492 1512; Add 1290 1290 1585; Sub 1112 1112 1290; Mul 1290 675 1303;
  Mul 1585 215 1155; Mul 1586 290 1084; Add 1585 1585 1586; Mul 1586 674 1164; Mul 1587 216 1141;
  Mul 1588 274 1091; Add 1587 1587 1588; Mul 1588 296 1587; Sub 1586 1586 1588; Mul 1588 676 1121;
  Mul 1136 215 1136; Mul 1589 270 1084; Add 1136 1136 1589; Mul 1148 216 1148; Mul 1589 281 1091;
  Add 1148 1148 1589; Sub 1136 1136 1148; Mul 1148 255 1136; Add 1588 1588 1148; Add 1586 1586 1588;
  Add 1585 1585 1586; Mul 1586 602 1317; Mul 1588 523 1340; Add 1586 1586 1588; Mul 1588 671 1303;
  Mul 1148 502 1512; Add 1588 1588 1148; Add 1586 1586 1588; Sub 1586 1585 1586; Mul 1586 672 1586;
  Mul 1588 502 1586; Add 1290 1290 1588; Mul 1588 679 1300; Mul 1155 216 1155; Mul 1148 290 1091;
  Sub 1155 1155 1148; Mul 1148 676 1144; Mul 1589 278 1136; Add 1148 1148 1589; Mul 1589 680 1164;
  Mul 1590 274 1084; Mul 1141 215 1141; Sub 1590 1590 1141; Mul 1141 296 1590; Add 1589 1589 1141;
  Add 1148 1148 1589; Sub 1155 1155 1148; Mul 1148 671 1300; Mul 1589 505 1512; Add 1148 1148 1589;
  Mul 1589 670 1317; Mul 1141 523 1552; Add 1589 1589 1141; Add 1148 1148 1589; Add 1148 1155 1148;
  Mul 1148 672 1148; Mul 1589 505 1148; Add 1588 1588 1589; Sub 1290 1290 1588; Add 1112 1112 1290;
  Mul 1521 674 1521; Mul 1290 633 1587; Sub 1521 1521 1290; Mul 1560 680 1560; Mul 1290 657 1590;
  Add 1560 1560 1290; Mul 1518 275 1518; Mul 1140 631 1140; Add 1290 1518 1140].
Definition casadi_f0_55 : list instruction := [
  Mul 1588 629 1135; Mul 1589 282 1513; Add 1141 1588 1589; Mul 1591 655 1137; Mul 1592 271 1556;
  Add 1593 1591 1592; Add 1140 1140 1518; Add 1518 1593 1140; Add 1141 1141 1518; Sub 1594 1290 1141;
  Add 1589 1589 1588; Add 1592 1592 1591; Add 1290 1592 1290; Add 1589 1589 1290; Sub 1140 1140 1589;
  Sub 1594 1594 1140; Mul 1527 329 1527; Mul 1132 636 1132; Add 1140 1527 1132; Mul 1591 634 1088;
  Mul 1588 336 1522; Add 1595 1591 1588; Mul 1596 659 1183; Mul 1597 325 1564; Add 1598 1596 1597;
  Add 1132 1132 1527; Add 1527 1598 1132; Add 1595 1595 1527; Sub 1599 1140 1595; Add 1588 1588 1591;
  Add 1597 1597 1596; Add 1140 1597 1140; Add 1588 1588 1140; Sub 1132 1132 1588; Sub 1599 1599 1132;
  Mul 1536 384 1536; Mul 1225 641 1225; Add 1132 1536 1225; Mul 1596 639 1233; Mul 1591 391 1531;
  Add 1600 1596 1591; Mul 1601 663 1222; Mul 1602 381 1572; Add 1603 1601 1602; Add 1225 1225 1536;
  Add 1536 1603 1225; Add 1600 1600 1536; Sub 1604 1132 1600; Add 1591 1591 1596; Add 1602 1602 1601;
  Add 1132 1602 1132; Add 1591 1591 1132; Sub 1225 1225 1591; Sub 1604 1604 1225; Mul 1545 438 1545;
  Mul 1225 646 1266; Add 1601 1545 1225; Mul 1596 644 1274; Mul 1605 445 1540; Add 1606 1596 1605;
  Mul 1607 667 1262; Mul 1608 434 1580; Add 1609 1607 1608; Add 1225 1225 1545; Add 1545 1609 1225;
  Add 1606 1606 1545; Sub 1610 1601 1606; Add 1605 1605 1596; Add 1608 1608 1607; Add 1601 1608 1601;
  Add 1605 1605 1601; Sub 1225 1225 1605; Sub 1610 1610 1225; Add 1604 1604 1610; Add 1599 1599 1604;
  Add 1594 1594 1599; Mul 1594 676 1594; Mul 1225 687 1136; Add 1607 1594 1225; Sub 1560 1560 1607;
  Add 1521 1521 1560; Mul 1459 215 1459; Mul 1560 552 1084; Add 1459 1459 1560; Mul 1361 216 1361;
  Mul 1560 568 1091; Sub 1361 1361 1560; Sub 1459 1459 1361; Add 1521 1521 1459; Add 1112 1112 1521;
  Mul 1112 2 1112; Mul 1521 649 1018; Add 1112 1112 1521; Add 1098 1098 1112; Mul 1271 677 1271;
  Mul 1112 216 1128; Mul 1521 309 1091; Sub 1112 1112 1521; Mul 1521 215 1189; Mul 1459 332 1084;
  Add 1521 1521 1459; Add 1112 1112 1521; Mul 1521 484 1112; Add 1271 1271 1521; Mul 1521 706 1308;
  Mul 1459 216 1204; Mul 1361 349 1091; Sub 1459 1459 1361; Mul 1361 513 1459; Add 1521 1521 1361;
  Mul 1361 712 1320; Mul 1560 215 1204; Mul 1607 349 1084; Add 1560 1560 1607; Mul 1607 530 1560;
  Add 1361 1361 1607; Add 1521 1521 1361; Sub 1271 1271 1521; Mul 1521 711 1291; Mul 1361 706 1314;
  Mul 1607 519 1459; Add 1361 1361 1607; Mul 1607 677 1291; Mul 1596 494 1112; Add 1607 1607 1596;
  Add 1361 1361 1607; Mul 1607 215 1199; Mul 1596 344 1084; Add 1607 1607 1596; Mul 1596 714 1204;
  Mul 1611 216 1186; Mul 1612 328 1091; Sub 1611 1611 1612; Mul 1612 349 1611; Add 1596 1596 1612;
  Mul 1612 716 1128; Mul 1181 216 1181; Mul 1613 335 1091; Sub 1181 1181 1613; Mul 1182 215 1182;
  Mul 1613 324 1084; Add 1182 1182 1613; Add 1181 1181 1182; Mul 1182 309 1181; Add 1612 1612 1182;
  Add 1596 1596 1612; Add 1607 1607 1596; Sub 1361 1361 1607; Mul 1361 156 1361].
Definition casadi_f0_56 : list instruction := [
  Mul 1596 494 1361; Add 1521 1521 1596; Mul 1596 719 1295; Mul 1612 716 1189; Mul 1182 332 1181;
  Add 1612 1612 1182; Mul 1182 718 1204; Mul 1186 215 1186; Mul 1613 328 1084; Add 1186 1186 1613;
  Mul 1613 349 1186; Add 1182 1182 1613; Add 1612 1612 1182; Mul 1199 216 1199; Mul 1182 344 1091;
  Sub 1199 1199 1182; Sub 1612 1612 1199; Mul 1199 677 1295; Mul 1182 497 1112; Add 1199 1199 1182;
  Mul 1182 712 1314; Mul 1613 519 1560; Add 1182 1182 1613; Add 1199 1199 1182; Sub 1199 1612 1199;
  Mul 1199 156 1199; Mul 1182 497 1199; Add 1596 1596 1182; Sub 1521 1521 1596; Add 1271 1271 1521;
  Mul 1599 716 1599; Mul 1521 694 1181; Add 1596 1599 1521; Mul 1568 718 1568; Mul 1182 661 1186;
  Add 1568 1568 1182; Sub 1596 1596 1568; Mul 1530 714 1530; Mul 1568 638 1611; Add 1530 1530 1568;
  Sub 1596 1596 1530; Mul 1385 216 1385; Mul 1530 582 1091; Sub 1385 1385 1530; Mul 1472 215 1472;
  Mul 1530 618 1084; Add 1472 1472 1530; Sub 1385 1385 1472; Add 1596 1596 1385; Add 1271 1271 1596;
  Mul 1271 3 1271; Mul 1596 681 1019; Add 1271 1271 1596; Add 1098 1098 1271; Mul 1271 715 1307;
  Mul 1596 327 1165; Mul 1385 405 1184; Add 1596 1596 1385; Mul 1385 318 1228; Mul 1472 387 1178;
  Add 1385 1385 1472; Sub 1596 1596 1385; Mul 1385 510 1596; Add 1271 1271 1385; Mul 1385 721 1094;
  Mul 1472 318 1174; Mul 1530 363 1178; Add 1472 1472 1530; Mul 1530 310 1165; Mul 1568 405 1160;
  Add 1530 1530 1568; Sub 1472 1472 1530; Mul 1530 528 1472; Add 1385 1385 1530; Add 1271 1271 1385;
  Mul 1385 722 1259; Mul 1530 310 1228; Mul 1568 387 1160; Add 1530 1530 1568; Mul 1568 327 1174;
  Mul 1182 363 1184; Add 1568 1568 1182; Sub 1530 1530 1568; Mul 1568 479 1530; Add 1385 1385 1568;
  Add 1271 1271 1385; Mul 1385 726 1213; Mul 1568 318 1146; Mul 1182 404 1178; Add 1568 1568 1182;
  Mul 1182 310 1240; Mul 1613 399 1160; Add 1182 1182 1613; Sub 1568 1568 1182; Mul 1182 725 1165;
  Mul 1613 327 1224; Mul 1614 383 1184; Add 1613 1613 1614; Mul 1614 318 1220; Mul 1615 379 1178;
  Add 1614 1614 1615; Sub 1613 1613 1614; Mul 1614 405 1613; Add 1182 1182 1614; Mul 1614 727 1174;
  Mul 1220 310 1220; Mul 1615 379 1160; Add 1220 1220 1615; Mul 1615 327 1232; Mul 1616 390 1184;
  Add 1615 1615 1616; Sub 1220 1220 1615; Mul 1615 363 1220; Add 1614 1614 1615; Sub 1182 1182 1614;
  Add 1568 1568 1182; Mul 1182 715 1311; Mul 1614 515 1596; Add 1182 1182 1614; Mul 1614 722 1213;
  Mul 1615 486 1530; Add 1614 1614 1615; Sub 1182 1182 1614; Sub 1182 1568 1182; Mul 1182 723 1182;
  Mul 1614 486 1182; Add 1385 1385 1614; Mul 1614 730 1287; Mul 1240 327 1240; Mul 1615 399 1184;
  Add 1240 1240 1615; Mul 1615 318 1247; Mul 1616 408 1178; Add 1615 1615 1616; Sub 1240 1240 1615;
  Mul 1615 727 1228; Mul 1616 387 1220; Add 1615 1615 1616; Mul 1616 731 1165; Mul 1232 318 1232;
  Mul 1617 390 1178; Add 1232 1232 1617; Mul 1224 310 1224; Mul 1617 383 1160; Add 1224 1224 1617;
  Sub 1232 1232 1224; Mul 1224 405 1232; Add 1616 1616 1224; Sub 1615 1615 1616].
Definition casadi_f0_57 : list instruction := [
  Add 1240 1240 1615; Mul 1615 722 1287; Mul 1616 489 1530; Add 1615 1615 1616; Mul 1616 721 1311;
  Mul 1224 515 1472; Add 1616 1616 1224; Sub 1615 1615 1616; Sub 1615 1240 1615; Mul 1615 723 1615;
  Mul 1616 489 1615; Add 1614 1614 1616; Sub 1385 1385 1614; Add 1271 1271 1385; Mul 1385 725 1539;
  Mul 1614 643 1613; Add 1385 1385 1614; Mul 1614 731 1576; Mul 1616 665 1232; Add 1614 1614 1616;
  Mul 1616 727 1604; Mul 1224 701 1220; Add 1617 1616 1224; Add 1614 1614 1617; Add 1385 1385 1614;
  Mul 1614 310 1485; Mul 1617 620 1160; Add 1614 1614 1617; Mul 1617 327 1409; Mul 1618 595 1184;
  Add 1617 1617 1618; Mul 1238 318 1238; Mul 1618 395 1178; Add 1619 1238 1618; Add 1617 1617 1619;
  Add 1614 1614 1617; Sub 1385 1385 1614; Add 1271 1271 1385; Mul 1385 4 1271; Mul 1614 720 1020;
  Add 1385 1385 1614; Add 1098 1098 1385; Mul 1385 728 1272; Mul 1614 372 1244; Mul 1617 459 1218;
  Add 1614 1614 1617; Mul 1617 369 1269; Mul 1619 441 1214; Add 1617 1617 1619; Sub 1614 1614 1617;
  Mul 1617 443 1614; Add 1385 1385 1617; Mul 1617 733 1257; Mul 1619 369 1252; Mul 1620 417 1214;
  Add 1619 1619 1620; Mul 1620 358 1244; Mul 1621 459 1211; Add 1620 1620 1621; Sub 1619 1619 1620;
  Mul 1620 426 1619; Add 1617 1617 1620; Add 1385 1385 1617; Mul 1617 734 1255; Mul 1620 358 1269;
  Mul 1621 441 1211; Add 1620 1620 1621; Mul 1621 372 1252; Mul 1622 417 1218; Add 1621 1621 1622;
  Sub 1620 1620 1621; Mul 1621 478 1620; Add 1617 1617 1621; Add 1385 1385 1617; Mul 1617 735 1274;
  Mul 1621 369 1243; Mul 1622 458 1214; Add 1621 1621 1622; Mul 1622 358 1281; Mul 1623 451 1211;
  Add 1622 1622 1623; Sub 1621 1621 1622; Mul 1622 736 1244; Mul 1623 372 1265; Mul 1624 437 1218;
  Add 1623 1623 1624; Mul 1624 369 1260; Mul 1625 432 1214; Add 1624 1624 1625; Sub 1623 1623 1624;
  Mul 1624 459 1623; Add 1622 1622 1624; Mul 1624 738 1252; Mul 1260 358 1260; Mul 1625 432 1211;
  Add 1260 1260 1625; Mul 1625 372 1273; Mul 1626 444 1218; Add 1625 1625 1626; Sub 1260 1260 1625;
  Mul 1625 417 1260; Add 1624 1624 1625; Sub 1622 1622 1624; Add 1621 1621 1622; Mul 1622 728 1266;
  Mul 1624 438 1614; Add 1622 1622 1624; Mul 1624 734 1274; Mul 1625 445 1620; Add 1624 1624 1625;
  Sub 1622 1622 1624; Sub 1621 1621 1622; Mul 1621 430 1621; Mul 1622 445 1621; Add 1617 1617 1622;
  Mul 1622 739 1262; Mul 1281 372 1281; Mul 1624 451 1218; Add 1281 1281 1624; Mul 1624 369 1249;
  Mul 1625 462 1214; Add 1624 1624 1625; Sub 1281 1281 1624; Mul 1624 738 1269; Mul 1625 441 1260;
  Add 1624 1624 1625; Mul 1625 741 1244; Mul 1273 369 1273; Mul 1626 444 1214; Add 1273 1273 1626;
  Mul 1265 358 1265; Mul 1626 437 1211; Add 1265 1265 1626; Sub 1273 1273 1265; Mul 1265 459 1273;
  Add 1625 1625 1265; Sub 1624 1624 1625; Add 1281 1281 1624; Mul 1624 734 1262; Mul 1625 434 1620;
  Add 1624 1624 1625; Mul 1625 733 1266; Mul 1265 438 1619; Add 1625 1625 1265; Sub 1624 1624 1625;
  Sub 1281 1281 1624; Mul 1281 430 1281; Mul 1624 434 1281; Add 1622 1622 1624].
Definition casadi_f0_58 : list instruction := [
  Sub 1617 1617 1622; Add 1385 1385 1617; Mul 1617 736 1548; Mul 1622 648 1623; Add 1617 1617 1622;
  Mul 1622 741 1584; Mul 1624 669 1273; Add 1622 1622 1624; Mul 1624 738 1610; Mul 1625 708 1260;
  Add 1265 1624 1625; Add 1622 1622 1265; Add 1617 1617 1622; Mul 1622 358 1498; Mul 1265 622 1211;
  Add 1622 1622 1265; Mul 1265 372 1432; Mul 1626 608 1218; Add 1265 1265 1626; Mul 1279 369 1279;
  Mul 1626 449 1214; Add 1627 1279 1626; Add 1265 1265 1627; Add 1622 1622 1265; Sub 1617 1617 1622;
  Add 1385 1385 1617; Mul 1617 5 1385; Mul 1622 732 1021; Add 1617 1617 1622; Add 1098 1098 1617;
  Mul 1617 286 1069; Mul 1622 212 1617; Mul 1622 107 1622; Mul 1265 745 1023; Mul 1627 737 1023;
  Mul 1628 9 1617; Add 1627 1627 1628; Mul 1628 743 1022; Mul 1629 286 1071; Mul 1630 8 1629;
  Add 1628 1628 1630; Sub 1627 1627 1628; Mul 1628 269 1627; Mul 1630 81 1628; Mul 1631 746 1051;
  Mul 1632 743 1023; Mul 1633 9 1629; Sub 1632 1632 1633; Mul 1617 8 1617; Mul 1633 737 1022;
  Sub 1617 1617 1633; Sub 1632 1632 1617; Mul 1617 53 1632; Add 1631 1631 1617; Mul 1617 66 1627;
  Mul 1633 742 1052; Sub 1617 1617 1633; Add 1631 1631 1617; Mul 1617 323 1631; Mul 1633 47 1617;
  Mul 1634 378 1631; Mul 1635 24 1634; Mul 1636 752 1035; Mul 1637 66 1632; Mul 1638 746 1052;
  Sub 1637 1637 1638; Mul 1638 742 1051; Mul 1627 53 1627; Add 1638 1638 1627; Sub 1637 1637 1638;
  Mul 1638 35 1637; Add 1636 1636 1638; Mul 1638 378 1636; Mul 1627 31 1638; Sub 1635 1635 1627;
  Mul 1627 753 1026; Mul 1639 15 1636; Add 1627 1627 1639; Mul 1639 16 1631; Mul 1640 747 1025;
  Sub 1639 1639 1640; Add 1627 1627 1639; Mul 1627 430 1627; Mul 1639 26 1627; Mul 1636 16 1636;
  Mul 1640 753 1025; Sub 1636 1636 1640; Mul 1640 747 1026; Mul 1631 15 1631; Add 1640 1640 1631;
  Sub 1636 1636 1640; Mul 1636 430 1636; Mul 1640 28 1636; Sub 1639 1639 1640; Mul 1640 16 1627;
  Mul 1631 755 1025; Sub 1640 1640 1631; Mul 1631 757 1026; Mul 1641 15 1636; Add 1631 1631 1641;
  Sub 1640 1640 1631; Mul 1631 25 1640; Mul 1641 16 1636; Mul 1642 757 1025; Sub 1641 1641 1642;
  Mul 1642 755 1026; Mul 1643 15 1627; Add 1642 1642 1643; Add 1641 1641 1642; Mul 1642 32 1641;
  Sub 1631 1631 1642; Add 1631 1639 1631; Add 1635 1635 1631; Mul 1631 19 1635; Mul 1642 751 1036;
  Sub 1631 1631 1642; Mul 1642 763 1035; Mul 1643 19 1637; Mul 1644 752 1036; Sub 1643 1643 1644;
  Mul 1644 378 1643; Mul 1645 31 1644; Mul 1646 380 1634; Sub 1645 1645 1646; Mul 1643 430 1643;
  Mul 1646 28 1643; Mul 1627 433 1627; Sub 1646 1646 1627; Mul 1627 16 1646; Mul 1647 764 1025;
  Sub 1627 1627 1647; Mul 1647 766 1026; Mul 1636 433 1636; Mul 1648 26 1643; Sub 1636 1636 1648;
  Mul 1648 15 1636; Add 1647 1647 1648; Add 1627 1627 1647; Mul 1647 32 1643; Mul 1648 198 1640;
  Sub 1647 1647 1648; Add 1627 1627 1647; Add 1645 1645 1627; Mul 1627 35 1645; Add 1642 1642 1627;
  Add 1631 1631 1642; Add 1634 1634 1640; Mul 1640 48 1634; Add 1642 1638 1641].
Definition casadi_f0_59 : list instruction := [
  Mul 1627 19 1642; Mul 1647 765 1036; Sub 1627 1627 1647; Mul 1647 768 1035; Add 1648 1644 1643;
  Mul 1649 35 1648; Add 1647 1647 1649; Sub 1627 1627 1647; Mul 1647 55 1627; Sub 1640 1640 1647;
  Add 1631 1631 1640; Add 1633 1633 1631; Mul 1631 66 1633; Mul 1640 749 1052; Sub 1631 1631 1640;
  Mul 1640 762 1051; Mul 1638 380 1638; Mul 1644 24 1644; Sub 1638 1638 1644; Mul 1636 16 1636;
  Mul 1025 766 1025; Sub 1636 1636 1025; Mul 1026 764 1026; Mul 1646 15 1646; Add 1026 1026 1646;
  Sub 1636 1636 1026; Mul 1641 198 1641; Mul 1643 25 1643; Sub 1641 1641 1643; Add 1636 1636 1641;
  Add 1638 1638 1636; Mul 1636 62 1627; Mul 1648 19 1648; Mul 1641 768 1036; Sub 1648 1648 1641;
  Mul 1641 765 1035; Mul 1642 35 1642; Add 1641 1641 1642; Add 1648 1648 1641; Mul 1641 48 1648;
  Sub 1636 1636 1641; Add 1636 1638 1636; Mul 1637 323 1637; Mul 1641 47 1637; Sub 1636 1636 1641;
  Mul 1641 53 1636; Add 1640 1640 1641; Add 1631 1631 1640; Mul 1640 86 1627; Sub 1631 1631 1640;
  Add 1630 1630 1631; Mul 1631 9 1630; Add 1265 1265 1631; Mul 1636 66 1636; Mul 1631 762 1052;
  Sub 1636 1636 1631; Mul 1631 749 1051; Mul 1633 53 1633; Add 1631 1631 1633; Sub 1636 1636 1631;
  Mul 1631 91 1627; Add 1636 1636 1631; Mul 1632 269 1632; Mul 1631 81 1632; Sub 1636 1636 1631;
  Mul 1631 8 1636; Mul 1633 758 1022; Sub 1631 1631 1633; Add 1265 1265 1631; Mul 1627 102 1627;
  Add 1631 1637 1648; Mul 1633 66 1631; Mul 1640 770 1052; Sub 1633 1633 1640; Mul 1640 772 1051;
  Add 1641 1617 1634; Mul 1642 53 1641; Add 1640 1640 1642; Add 1633 1633 1640; Add 1640 1632 1633;
  Mul 1642 8 1640; Mul 1643 773 1022; Sub 1642 1642 1643; Mul 1643 776 1023; Mul 1641 66 1641;
  Mul 1052 772 1052; Sub 1641 1641 1052; Mul 1051 770 1051; Mul 1631 53 1631; Add 1051 1051 1631;
  Sub 1641 1641 1051; Add 1051 1628 1641; Mul 1631 9 1051; Add 1643 1643 1631; Sub 1642 1642 1643;
  Mul 1642 108 1642; Sub 1627 1627 1642; Add 1265 1265 1627; Add 1622 1622 1265; Mul 1622 114 1622;
  Mul 1071 740 1071; Sub 1622 1622 1071; Mul 1069 774 1069; Mul 1630 8 1630; Mul 1071 745 1022;
  Sub 1630 1630 1071; Mul 1071 758 1023; Mul 1636 9 1636; Add 1071 1071 1636; Sub 1630 1630 1071;
  Mul 1023 773 1023; Mul 1640 9 1640; Add 1023 1023 1640; Mul 1051 8 1051; Mul 1022 776 1022;
  Sub 1051 1051 1022; Add 1023 1023 1051; Mul 1051 108 1023; Add 1630 1630 1051; Mul 1629 212 1629;
  Mul 1051 107 1629; Sub 1630 1630 1051; Mul 1630 113 1630; Add 1069 1069 1630; Sub 1622 1622 1069;
  Add 1098 1098 1622; Mul 1622 210 1098; Sub 1082 1082 1622; Div 1622 1074 92; Div 1069 777 92;
  Mul 1630 1069 1062; Sub 1622 1622 1630; Mul 1630 779 1622; Add 1349 1349 1347; Add 1345 1345 1344;
  Sub 1349 1349 1345; Add 1113 1113 1341; Add 1339 1339 1323; Sub 1113 1113 1339; Add 1096 1096 1113;
  Sub 1349 1349 1096; Add 1349 1349 1350; Add 1373 1373 1371; Add 1369 1369 1368; Sub 1373 1373 1369;
  Add 1365 1365 1364; Add 1116 1116 1134; Add 1365 1365 1116; Add 1130 1130 1362].
Definition casadi_f0_60 : list instruction := [
  Add 1360 1360 1351; Sub 1130 1130 1360; Add 1365 1365 1130; Sub 1373 1373 1365; Add 1373 1373 1363;
  Add 1397 1397 1395; Add 1393 1393 1392; Sub 1397 1397 1393; Add 1389 1389 1388; Add 1173 1173 1180;
  Add 1389 1389 1173; Add 1176 1176 1386; Add 1384 1384 1374; Sub 1176 1176 1384; Add 1389 1389 1176;
  Sub 1397 1397 1389; Add 1397 1397 1387; Add 1421 1421 1419; Add 1417 1417 1416; Sub 1421 1421 1417;
  Add 1413 1413 1412; Add 1156 1156 1403; Add 1413 1413 1156; Add 1216 1216 1410; Add 1408 1408 1398;
  Sub 1216 1216 1408; Add 1413 1413 1216; Sub 1421 1421 1413; Add 1421 1421 1411; Add 1444 1444 1442;
  Add 1440 1440 1439; Sub 1444 1444 1440; Add 1436 1436 1435; Add 1230 1230 1427; Add 1436 1436 1230;
  Add 1256 1256 1433; Add 1431 1431 1422; Sub 1256 1256 1431; Add 1436 1436 1256; Sub 1444 1444 1436;
  Add 1444 1444 1434; Add 1421 1421 1444; Add 1397 1397 1421; Add 1373 1373 1397; Add 1349 1349 1373;
  Mul 1349 216 1349; Mul 1434 780 1091; Sub 1349 1349 1434; Mul 1434 781 1084; Add 1337 1337 1455;
  Add 1453 1453 1452; Sub 1337 1337 1453; Sub 1445 1445 1337; Add 1451 1451 1335; Add 1449 1449 1447;
  Sub 1451 1451 1449; Add 1445 1445 1451; Sub 1445 1445 1454; Add 1469 1469 1356; Add 1467 1467 1466;
  Sub 1469 1469 1467; Add 1465 1465 1464; Add 1462 1462 1461; Add 1465 1465 1462; Add 1358 1358 1460;
  Add 1458 1458 1456; Sub 1358 1358 1458; Add 1465 1465 1358; Sub 1469 1469 1465; Sub 1469 1469 1463;
  Add 1482 1482 1380; Add 1480 1480 1479; Sub 1482 1482 1480; Add 1478 1478 1477; Add 1475 1475 1474;
  Add 1478 1478 1475; Add 1382 1382 1473; Add 1471 1471 1468; Sub 1382 1382 1471; Add 1478 1478 1382;
  Sub 1482 1482 1478; Sub 1482 1482 1476; Add 1495 1495 1221; Add 1493 1493 1492; Sub 1495 1495 1493;
  Add 1491 1491 1490; Add 1488 1488 1487; Add 1491 1491 1488; Add 1406 1406 1486; Add 1484 1484 1481;
  Sub 1406 1406 1484; Add 1491 1491 1406; Sub 1495 1495 1491; Sub 1495 1495 1489; Add 1508 1508 1261;
  Add 1506 1506 1505; Sub 1508 1508 1506; Add 1504 1504 1503; Add 1501 1501 1500; Add 1504 1504 1501;
  Add 1429 1429 1499; Add 1497 1497 1494; Sub 1429 1429 1497; Add 1504 1504 1429; Sub 1508 1508 1504;
  Sub 1508 1508 1502; Add 1495 1495 1508; Add 1482 1482 1495; Add 1469 1469 1482; Add 1445 1445 1469;
  Mul 1445 215 1445; Add 1434 1434 1445; Sub 1349 1349 1434; Sub 1507 1507 1511; Sub 1516 1516 1520;
  Sub 1525 1525 1529; Sub 1534 1534 1538; Sub 1543 1543 1547; Add 1534 1534 1543; Add 1525 1525 1534;
  Add 1516 1516 1525; Add 1507 1507 1516; Mul 1507 540 1507; Mul 1511 625 1328; Sub 1507 1507 1511;
  Mul 1511 651 1332; Sub 1550 1550 1551; Add 1555 1555 1559; Add 1563 1563 1567; Add 1571 1571 1575;
  Add 1579 1579 1583; Add 1571 1571 1579; Add 1563 1563 1571; Add 1555 1555 1563; Add 1550 1550 1555;
  Mul 1550 544 1550; Add 1511 1511 1550; Add 1507 1507 1511; Sub 1349 1349 1507; Mul 1349 0 1349;
  Mul 1507 23 1016; Add 1349 1349 1507; Mul 1322 508 1322; Mul 1507 534 1306; Add 1322 1322 1507;
  Add 1400 1400 1424; Mul 1219 482 1219; Mul 1285 511 1285; Add 1219 1219 1285].
Definition casadi_f0_61 : list instruction := [
  Sub 1400 1400 1219; Add 1376 1376 1400; Mul 1283 490 1283; Mul 1288 514 1288; Add 1283 1283 1288;
  Sub 1376 1376 1283; Add 1354 1354 1376; Mul 1292 498 1292; Mul 1296 518 1296; Add 1292 1292 1296;
  Sub 1354 1354 1292; Add 1330 1330 1354; Mul 1301 522 1301; Mul 1304 506 1304; Sub 1301 1301 1304;
  Sub 1330 1330 1301; Mul 1301 526 1330; Mul 1304 784 1093; Add 1301 1301 1304; Add 1402 1402 1426;
  Add 1304 512 512; Mul 1309 1304 1309; Add 1153 1153 1309; Mul 1153 20 1153; Add 1402 1402 1153;
  Add 1378 1378 1402; Add 1153 516 516; Mul 1312 1153 1312; Add 1212 1212 1312; Mul 1212 37 1212;
  Add 1378 1378 1212; Add 1355 1355 1378; Add 1212 520 520; Mul 1315 1212 1315; Add 1293 1293 1315;
  Mul 1293 80 1293; Add 1355 1355 1293; Add 1104 1104 1355; Add 1293 524 524; Mul 1318 1293 1318;
  Add 1305 1305 1318; Mul 1305 100 1305; Sub 1104 1104 1305; Mul 1104 536 1104; Mul 1305 496 1324;
  Add 1104 1104 1305; Add 1301 1301 1104; Sub 1322 1322 1301; Mul 1301 546 1325; Mul 1104 538 1333;
  Add 1301 1301 1104; Mul 1104 791 1316; Mul 1095 215 1095; Mul 1305 222 1084; Add 1095 1095 1305;
  Mul 1105 216 1105; Mul 1305 229 1091; Sub 1105 1105 1305; Sub 1095 1095 1105; Mul 1105 540 1103;
  Mul 1305 227 1328; Sub 1105 1105 1305; Mul 1305 544 1092; Mul 1292 219 1332; Add 1305 1305 1292;
  Sub 1105 1105 1305; Add 1095 1095 1105; Mul 1105 526 1329; Mul 1305 543 1093; Add 1105 1105 1305;
  Mul 1316 536 1316; Mul 1305 537 1324; Add 1316 1316 1305; Sub 1105 1105 1316; Sub 1105 1095 1105;
  Mul 1105 141 1105; Mul 1316 537 1105; Add 1104 1104 1316; Sub 1301 1301 1104; Add 1322 1322 1301;
  Mul 1301 556 1348; Mul 1099 560 1099; Add 1104 1301 1099; Sub 1123 1104 1123; Sub 1109 1101 1109;
  Sub 1107 1102 1107; Add 1109 1109 1107; Add 1099 1099 1301; Sub 1124 1124 1099; Add 1109 1109 1124;
  Sub 1123 1123 1109; Mul 1109 570 1372; Mul 1149 574 1149; Add 1124 1109 1149; Sub 1143 1124 1143;
  Sub 1171 1171 1167; Sub 1172 1172 1166; Add 1171 1171 1172; Add 1149 1149 1109; Sub 1142 1142 1149;
  Add 1171 1171 1142; Sub 1143 1143 1171; Mul 1171 584 1396; Mul 1193 588 1193; Add 1142 1171 1193;
  Sub 1188 1142 1188; Sub 1209 1209 1205; Sub 1210 1210 1127; Add 1209 1209 1210; Add 1193 1193 1171;
  Sub 1187 1187 1193; Add 1209 1209 1187; Sub 1188 1188 1209; Mul 1209 597 1420; Mul 1234 601 1234;
  Add 1187 1209 1234; Sub 1227 1187 1227; Sub 1250 1250 1246; Sub 1251 1251 1245; Add 1250 1250 1251;
  Add 1234 1234 1209; Sub 1226 1226 1234; Add 1250 1250 1226; Sub 1227 1227 1250; Mul 1250 610 1443;
  Mul 1275 614 1275; Add 1226 1250 1275; Sub 1268 1226 1268; Sub 1125 1125 1254; Sub 1284 1284 1258;
  Add 1125 1125 1284; Add 1275 1275 1250; Sub 1267 1267 1275; Add 1125 1125 1267; Sub 1268 1268 1125;
  Add 1227 1227 1268; Add 1188 1188 1227; Add 1143 1143 1188; Add 1123 1123 1143; Mul 1123 216 1123;
  Mul 1125 251 1091; Sub 1123 1123 1125; Mul 1125 230 1100; Mul 1106 225 1106; Add 1267 1125 1106;
  Mul 1097 231 1097; Mul 1250 223 1108; Sub 1097 1097 1250; Sub 1267 1267 1097].
Definition casadi_f0_62 : list instruction := [
  Mul 1338 560 1338; Mul 1250 553 1348; Add 1284 1338 1250; Mul 1110 244 1110; Mul 1117 248 1117;
  Add 1258 1110 1117; Sub 1284 1284 1258; Sub 1267 1267 1284; Mul 1348 558 1348; Mul 1343 560 1343;
  Add 1284 1348 1343; Mul 1122 243 1122; Mul 1114 249 1114; Add 1258 1122 1114; Sub 1284 1284 1258;
  Add 1267 1267 1284; Mul 1111 219 1111; Mul 1092 239 1092; Add 1111 1111 1092; Mul 1120 227 1120;
  Mul 1103 246 1103; Add 1120 1120 1103; Add 1111 1111 1120; Mul 1319 467 1319; Mul 1298 525 1298;
  Sub 1319 1319 1298; Add 1111 1111 1319; Mul 1353 231 1353; Mul 1319 559 1108; Sub 1353 1353 1319;
  Mul 1319 616 1100; Mul 1457 225 1457; Add 1319 1319 1457; Add 1353 1353 1319; Add 1111 1111 1353;
  Mul 1111 213 1111; Sub 1267 1267 1111; Mul 1353 572 1372; Mul 1367 574 1367; Add 1319 1353 1367;
  Mul 1126 284 1126; Mul 1150 258 1150; Add 1457 1126 1150; Sub 1319 1319 1457; Mul 1457 297 1137;
  Mul 1298 271 1162; Add 1120 1457 1298; Mul 1103 282 1169; Mul 1092 300 1135; Add 1284 1103 1092;
  Add 1120 1120 1284; Mul 1359 574 1359; Mul 1372 567 1372; Add 1284 1359 1372; Mul 1139 279 1139;
  Mul 1145 276 1145; Add 1258 1139 1145; Sub 1284 1284 1258; Add 1120 1120 1284; Sub 1319 1319 1120;
  Mul 1147 255 1147; Mul 1120 280 1121; Add 1147 1147 1120; Mul 1133 278 1133; Mul 1120 266 1144;
  Add 1133 1133 1120; Add 1147 1147 1133; Mul 1131 296 1131; Mul 1164 472 1164; Add 1131 1131 1164;
  Add 1147 1147 1131; Mul 1131 573 1135; Mul 1377 282 1377; Add 1131 1131 1377; Mul 1377 617 1137;
  Mul 1470 271 1470; Add 1377 1377 1470; Sub 1131 1131 1377; Add 1147 1147 1131; Mul 1147 213 1147;
  Sub 1319 1319 1147; Mul 1131 586 1396; Mul 1391 588 1391; Add 1377 1131 1391; Mul 1170 338 1170;
  Mul 1194 312 1194; Add 1470 1170 1194; Sub 1377 1377 1470; Mul 1470 351 1183; Mul 1164 325 1203;
  Add 1133 1470 1164; Mul 1120 336 1207; Mul 1284 354 1088; Add 1258 1120 1284; Add 1133 1133 1258;
  Mul 1383 588 1383; Mul 1396 581 1396; Add 1258 1383 1396; Mul 1185 333 1185; Mul 1190 330 1190;
  Add 1254 1185 1190; Sub 1258 1258 1254; Add 1133 1133 1258; Sub 1377 1377 1133; Mul 1192 309 1192;
  Mul 1133 334 1128; Add 1192 1192 1133; Mul 1179 332 1179; Mul 1133 320 1189; Add 1179 1179 1133;
  Add 1192 1192 1179; Mul 1177 349 1177; Mul 1204 474 1204; Add 1177 1177 1204; Add 1192 1192 1177;
  Mul 1177 587 1088; Mul 1401 336 1401; Add 1177 1177 1401; Mul 1401 619 1183; Mul 1483 325 1483;
  Add 1401 1401 1483; Sub 1177 1177 1401; Add 1192 1192 1177; Mul 1192 213 1192; Sub 1377 1377 1192;
  Mul 1177 599 1420; Mul 1415 601 1415; Add 1401 1177 1415; Mul 1208 393 1208; Mul 1235 366 1235;
  Add 1483 1208 1235; Sub 1401 1401 1483; Mul 1483 406 1222; Mul 1204 381 1157; Add 1179 1483 1204;
  Mul 1133 391 1248; Mul 1258 409 1233; Add 1254 1133 1258; Add 1179 1179 1254; Mul 1407 601 1407;
  Mul 1420 594 1420; Add 1254 1407 1420; Mul 1223 388 1223; Mul 1229 385 1229; Add 1209 1223 1229;
  Sub 1254 1254 1209; Add 1179 1179 1254; Sub 1401 1401 1179; Mul 1231 363 1231].
Definition casadi_f0_63 : list instruction := [
  Mul 1179 389 1174; Add 1231 1231 1179; Mul 1217 387 1217; Mul 1179 374 1228; Add 1217 1217 1179;
  Add 1231 1231 1217; Mul 1215 405 1215; Mul 1165 476 1165; Add 1215 1215 1165; Add 1231 1231 1215;
  Mul 1215 600 1233; Mul 1425 391 1425; Add 1215 1215 1425; Mul 1425 621 1222; Mul 1496 381 1496;
  Add 1425 1425 1496; Sub 1215 1215 1425; Add 1231 1231 1215; Mul 1231 213 1231; Sub 1401 1401 1231;
  Mul 1215 612 1443; Mul 1438 614 1438; Add 1425 1215 1438; Mul 1163 447 1163; Mul 1276 420 1276;
  Add 1496 1163 1276; Sub 1425 1425 1496; Mul 1496 460 1262; Mul 1165 434 1191; Add 1217 1496 1165;
  Mul 1179 445 1241; Mul 1254 463 1274; Add 1209 1179 1254; Add 1217 1217 1209; Mul 1430 614 1430;
  Mul 1443 607 1443; Add 1209 1430 1443; Mul 1263 442 1263; Mul 1270 439 1270; Add 1251 1263 1270;
  Sub 1209 1209 1251; Add 1217 1217 1209; Sub 1425 1425 1217; Mul 1217 417 1272; Mul 1209 443 1252;
  Add 1217 1217 1209; Mul 1209 441 1257; Mul 1251 426 1269; Add 1209 1209 1251; Add 1217 1217 1209;
  Mul 1209 459 1255; Mul 1244 478 1244; Add 1209 1209 1244; Add 1217 1217 1209; Mul 1209 611 1274;
  Mul 1448 445 1448; Add 1209 1209 1448; Mul 1448 623 1262; Mul 1509 434 1509; Add 1448 1448 1509;
  Sub 1209 1209 1448; Add 1217 1217 1209; Mul 1217 213 1217; Sub 1425 1425 1217; Add 1401 1401 1425;
  Add 1377 1377 1401; Add 1319 1319 1377; Add 1267 1267 1319; Mul 1267 215 1267; Mul 1209 470 1084;
  Add 1267 1267 1209; Sub 1123 1123 1267; Mul 1267 225 1450; Mul 1209 624 1100; Add 1448 1267 1209;
  Mul 1509 231 1549; Mul 1244 650 1108; Sub 1509 1509 1244; Sub 1448 1448 1509; Mul 1352 213 1352;
  Add 1244 1448 1352; Mul 1135 655 1135; Mul 1556 282 1556; Add 1251 1135 1556; Sub 1251 1159 1251;
  Mul 1513 271 1513; Mul 1137 629 1137; Add 1245 1513 1137; Add 1251 1251 1245; Mul 1375 213 1375;
  Sub 1245 1251 1375; Mul 1088 659 1088; Mul 1564 336 1564; Add 1246 1088 1564; Sub 1246 1201 1246;
  Mul 1522 325 1522; Mul 1183 634 1183; Add 1171 1522 1183; Add 1246 1246 1171; Mul 1399 213 1399;
  Sub 1171 1246 1399; Mul 1233 663 1233; Mul 1572 391 1572; Add 1210 1233 1572; Sub 1210 1242 1210;
  Mul 1531 381 1531; Mul 1222 639 1222; Add 1127 1531 1222; Add 1210 1210 1127; Mul 1423 213 1423;
  Sub 1127 1210 1423; Mul 1205 667 1274; Mul 1580 445 1580; Add 1109 1205 1580; Sub 1109 1282 1109;
  Mul 1540 434 1540; Mul 1172 644 1262; Add 1166 1540 1172; Add 1109 1109 1166; Mul 1446 213 1446;
  Sub 1166 1109 1446; Add 1127 1127 1166; Add 1171 1171 1127; Add 1245 1245 1171; Add 1244 1244 1245;
  Mul 1244 540 1244; Mul 1167 250 1328; Sub 1244 1244 1167; Mul 1549 225 1549; Mul 1100 650 1100;
  Add 1167 1549 1100; Mul 1450 231 1450; Mul 1108 624 1108; Sub 1450 1450 1108; Add 1100 1100 1549;
  Mul 1510 242 1510; Mul 1115 626 1115; Sub 1510 1510 1115; Add 1115 1100 1510; Add 1549 1450 1115;
  Sub 1549 1167 1549; Add 1167 1167 1510; Add 1450 1450 1167; Sub 1100 1100 1450; Sub 1549 1549 1100;
  Sub 1592 1592 1141; Sub 1593 1593 1589; Sub 1592 1592 1593; Sub 1597 1597 1595].
Definition casadi_f0_64 : list instruction := [
  Sub 1598 1598 1588; Sub 1597 1597 1598; Sub 1602 1602 1600; Sub 1603 1603 1591; Sub 1602 1602 1603;
  Sub 1608 1608 1606; Sub 1609 1609 1605; Sub 1608 1608 1609; Add 1602 1602 1608; Add 1597 1597 1602;
  Add 1592 1592 1597; Add 1549 1549 1592; Mul 1609 544 1549; Mul 1605 806 1332; Add 1609 1609 1605;
  Add 1244 1244 1609; Sub 1123 1123 1244; Add 1322 1322 1123; Mul 1322 216 1322; Mul 1123 652 1091;
  Sub 1322 1322 1123; Mul 1123 804 1084; Mul 1313 508 1313; Mul 1244 521 1306; Add 1313 1313 1244;
  Add 1253 1253 1309; Mul 1253 20 1253; Add 1418 1418 1441; Sub 1253 1253 1418; Sub 1394 1253 1394;
  Add 1289 1289 1312; Mul 1289 37 1289; Add 1394 1394 1289; Sub 1370 1394 1370; Add 1297 1297 1315;
  Mul 1297 80 1297; Add 1370 1370 1297; Add 1346 1346 1370; Sub 1302 1302 1318; Mul 1302 100 1302;
  Add 1346 1346 1302; Mul 1346 526 1346; Mul 1302 499 1093; Add 1346 1346 1302; Mul 1330 536 1330;
  Mul 1302 784 1324; Add 1330 1330 1302; Add 1346 1346 1330; Sub 1313 1313 1346; Mul 1329 791 1329;
  Mul 1105 543 1105; Add 1329 1329 1105; Mul 1325 539 1325; Mul 1105 538 1326; Add 1325 1325 1105;
  Sub 1329 1329 1325; Add 1313 1313 1329; Add 1106 1106 1125; Sub 1106 1106 1097; Add 1114 1114 1122;
  Add 1343 1343 1348; Sub 1114 1114 1343; Sub 1106 1106 1114; Add 1117 1117 1110; Add 1250 1250 1338;
  Sub 1117 1117 1250; Add 1106 1106 1117; Add 1106 1106 1111; Add 1145 1145 1139; Add 1372 1372 1359;
  Sub 1145 1145 1372; Add 1092 1092 1103; Add 1298 1298 1457; Add 1092 1092 1298; Add 1150 1150 1126;
  Add 1367 1367 1353; Sub 1150 1150 1367; Add 1092 1092 1150; Sub 1145 1145 1092; Add 1145 1145 1147;
  Add 1190 1190 1185; Add 1396 1396 1383; Sub 1190 1190 1396; Add 1284 1284 1120; Add 1164 1164 1470;
  Add 1284 1284 1164; Add 1194 1194 1170; Add 1391 1391 1131; Sub 1194 1194 1391; Add 1284 1284 1194;
  Sub 1190 1190 1284; Add 1190 1190 1192; Add 1229 1229 1223; Add 1420 1420 1407; Sub 1229 1229 1420;
  Add 1258 1258 1133; Add 1204 1204 1483; Add 1258 1258 1204; Add 1235 1235 1208; Add 1415 1415 1177;
  Sub 1235 1235 1415; Add 1258 1258 1235; Sub 1229 1229 1258; Add 1229 1229 1231; Add 1270 1270 1263;
  Add 1443 1443 1430; Sub 1270 1270 1443; Add 1254 1254 1179; Add 1165 1165 1496; Add 1254 1254 1165;
  Add 1276 1276 1163; Add 1438 1438 1215; Sub 1276 1276 1438; Add 1254 1254 1276; Sub 1270 1270 1254;
  Add 1270 1270 1217; Add 1229 1229 1270; Add 1190 1190 1229; Add 1145 1145 1190; Add 1106 1106 1145;
  Mul 1106 216 1106; Mul 1217 507 1091; Sub 1106 1106 1217; Add 1102 1102 1101; Sub 1099 1099 1119;
  Sub 1102 1102 1099; Sub 1118 1118 1104; Add 1102 1102 1118; Add 1154 1154 1158; Sub 1149 1149 1151;
  Sub 1154 1154 1149; Sub 1152 1152 1124; Add 1154 1154 1152; Add 1198 1198 1200; Sub 1193 1193 1195;
  Sub 1198 1198 1193; Sub 1196 1196 1142; Add 1198 1198 1196; Add 1239 1239 1175; Sub 1234 1234 1236;
  Sub 1239 1239 1234; Sub 1237 1237 1187; Add 1239 1239 1237; Add 1280 1280 1129; Sub 1275 1275 1277;
  Sub 1280 1280 1275; Sub 1278 1278 1226; Add 1280 1280 1278; Add 1239 1239 1280].
Definition casadi_f0_65 : list instruction := [
  Add 1198 1198 1239; Add 1154 1154 1198; Add 1102 1102 1154; Mul 1102 215 1102; Mul 1278 226 1084;
  Add 1102 1102 1278; Sub 1106 1106 1102; Sub 1167 1167 1115; Sub 1290 1290 1518; Sub 1140 1140 1527;
  Sub 1132 1132 1536; Sub 1601 1601 1545; Add 1132 1132 1601; Add 1140 1140 1132; Add 1290 1290 1140;
  Add 1167 1167 1290; Mul 1545 540 1167; Mul 1536 805 1328; Sub 1545 1545 1536; Add 1209 1209 1267;
  Sub 1509 1509 1209; Sub 1209 1509 1352; Add 1556 1556 1135; Add 1137 1137 1513; Add 1159 1159 1137;
  Sub 1556 1556 1159; Add 1159 1556 1375; Add 1564 1564 1088; Add 1183 1183 1522; Add 1201 1201 1183;
  Sub 1564 1564 1201; Add 1201 1564 1399; Add 1572 1572 1233; Add 1222 1222 1531; Add 1242 1242 1222;
  Sub 1572 1572 1242; Add 1242 1572 1423; Add 1580 1580 1205; Add 1172 1172 1540; Add 1282 1282 1172;
  Sub 1580 1580 1282; Add 1282 1580 1446; Add 1242 1242 1282; Add 1201 1201 1242; Add 1159 1159 1201;
  Add 1209 1209 1159; Mul 1209 544 1209; Mul 1172 693 1332; Add 1209 1209 1172; Add 1545 1545 1209;
  Sub 1106 1106 1545; Add 1313 1313 1106; Mul 1313 215 1313; Add 1123 1123 1313; Sub 1322 1322 1123;
  Sub 1448 1448 1352; Add 1251 1251 1375; Add 1246 1246 1399; Add 1210 1210 1423; Add 1109 1109 1446;
  Add 1210 1210 1109; Add 1246 1246 1210; Add 1251 1251 1246; Add 1448 1448 1251; Mul 1448 216 1448;
  Mul 1123 305 1091; Sub 1448 1448 1123; Mul 1167 215 1167; Mul 1123 805 1084; Add 1167 1167 1123;
  Sub 1448 1448 1167; Add 1333 1333 1448; Mul 1333 540 1333; Mul 1448 307 1328; Sub 1333 1333 1448;
  Mul 1448 360 1332; Mul 1549 216 1549; Mul 1167 806 1091; Sub 1549 1549 1167; Add 1509 1509 1352;
  Sub 1556 1556 1375; Sub 1564 1564 1399; Sub 1572 1572 1423; Sub 1580 1580 1446; Add 1572 1572 1580;
  Add 1564 1564 1572; Add 1556 1556 1564; Add 1509 1509 1556; Mul 1509 215 1509; Mul 1446 700 1084;
  Add 1509 1509 1446; Sub 1549 1549 1509; Add 1326 1326 1549; Mul 1326 544 1326; Add 1448 1448 1326;
  Add 1333 1333 1448; Sub 1322 1322 1333; Mul 1322 1 1322; Mul 1333 469 1017; Add 1322 1322 1333;
  Add 1349 1349 1322; Mul 1322 602 1354; Mul 1333 783 1340; Add 1322 1322 1333; Mul 1333 670 1355;
  Mul 1448 488 1552; Add 1333 1333 1448; Add 1322 1322 1333; Mul 1333 671 1321; Mul 1448 532 1512;
  Add 1333 1333 1448; Sub 1322 1322 1333; Mul 1333 679 1317; Mul 1448 523 1148; Add 1333 1333 1448;
  Mul 1448 796 1303; Mul 1121 680 1121; Mul 1326 255 1590; Add 1121 1121 1326; Mul 1144 674 1144;
  Mul 1326 278 1587; Sub 1144 1144 1326; Sub 1121 1121 1144; Mul 1161 216 1161; Mul 1144 294 1091;
  Sub 1161 1161 1144; Mul 1168 215 1168; Mul 1144 299 1084; Add 1168 1168 1144; Add 1161 1161 1168;
  Sub 1121 1121 1161; Mul 1161 670 1303; Mul 1168 502 1552; Add 1161 1161 1168; Mul 1168 602 1300;
  Mul 1144 505 1340; Add 1168 1168 1144; Sub 1161 1161 1168; Sub 1161 1121 1161; Mul 1161 672 1161;
  Mul 1168 502 1161; Add 1448 1448 1168; Sub 1333 1333 1448; Add 1322 1322 1333; Mul 1333 674 1245;
  Mul 1448 794 1587; Sub 1333 1333 1448; Mul 1448 680 1592; Mul 1168 689 1590].
Definition casadi_f0_66 : list instruction := [
  Add 1144 1448 1168; Add 1554 1554 1553; Add 1558 1558 1557; Add 1162 1162 1558; Sub 1554 1554 1162;
  Add 1162 1554 1559; Add 1562 1562 1561; Add 1566 1566 1565; Add 1203 1203 1566; Sub 1562 1562 1203;
  Add 1203 1562 1567; Add 1570 1570 1569; Add 1574 1574 1573; Add 1157 1157 1574; Sub 1570 1570 1157;
  Add 1157 1570 1575; Add 1578 1578 1577; Add 1582 1582 1581; Add 1191 1191 1582; Sub 1578 1578 1191;
  Add 1191 1578 1583; Add 1157 1157 1191; Add 1203 1203 1157; Add 1162 1162 1203; Mul 1162 676 1162;
  Mul 1582 410 1136; Add 1162 1162 1582; Sub 1144 1144 1162; Add 1333 1333 1144; Mul 1144 215 1319;
  Mul 1162 461 1084; Add 1144 1144 1162; Mul 1143 216 1143; Mul 1162 277 1091; Sub 1143 1143 1162;
  Sub 1144 1144 1143; Add 1333 1333 1144; Add 1322 1322 1333; Mul 1322 216 1322; Mul 1333 707 1091;
  Sub 1322 1322 1333; Mul 1333 793 1084; Mul 1144 602 1370; Mul 1162 491 1340; Add 1144 1144 1162;
  Mul 1162 670 1354; Mul 1582 783 1552; Add 1162 1162 1582; Add 1144 1144 1162; Mul 1162 671 1310;
  Mul 1582 517 1512; Add 1162 1162 1582; Sub 1144 1144 1162; Mul 1162 796 1300; Mul 1582 505 1161;
  Add 1162 1162 1582; Mul 1582 675 1317; Mul 1581 523 1586; Add 1582 1582 1581; Sub 1162 1162 1582;
  Add 1144 1144 1162; Mul 1162 674 1290; Mul 1582 682 1587; Sub 1162 1162 1582; Mul 1582 680 1159;
  Mul 1581 808 1590; Add 1582 1582 1581; Add 1515 1515 1514; Sub 1169 1169 1515; Add 1519 1519 1517;
  Add 1169 1169 1519; Sub 1519 1169 1520; Add 1524 1524 1523; Sub 1207 1207 1524; Add 1528 1528 1526;
  Add 1207 1207 1528; Sub 1528 1207 1529; Add 1533 1533 1532; Sub 1248 1248 1533; Add 1537 1537 1535;
  Add 1248 1248 1537; Sub 1537 1248 1538; Add 1542 1542 1541; Sub 1241 1241 1542; Add 1546 1546 1544;
  Add 1241 1241 1546; Sub 1546 1241 1547; Add 1537 1537 1546; Add 1528 1528 1537; Add 1519 1519 1528;
  Mul 1519 676 1519; Mul 1544 301 1136; Add 1519 1519 1544; Sub 1582 1582 1519; Add 1582 1162 1582;
  Mul 1154 215 1154; Mul 1519 303 1084; Add 1544 1154 1519; Mul 1542 216 1145; Mul 1541 468 1091;
  Sub 1542 1542 1541; Sub 1544 1544 1542; Add 1582 1582 1544; Add 1144 1144 1582; Mul 1144 215 1144;
  Add 1333 1333 1144; Sub 1144 1322 1333; Mul 1290 215 1290; Mul 1582 682 1084; Add 1544 1290 1582;
  Mul 1542 216 1251; Mul 1541 792 1091; Sub 1542 1542 1541; Sub 1544 1544 1542; Add 1148 1148 1544;
  Mul 1544 540 1148; Mul 1542 233 1328; Sub 1544 1544 1542; Mul 1542 789 1332; Mul 1541 215 1556;
  Mul 1535 686 1084; Add 1541 1541 1535; Mul 1592 216 1592; Mul 1535 689 1091; Sub 1592 1592 1535;
  Sub 1541 1541 1592; Add 1586 1586 1541; Mul 1541 544 1586; Add 1542 1542 1541; Add 1544 1544 1542;
  Sub 1144 1144 1544; Mul 1144 2 1144; Mul 1544 285 1018; Add 1144 1144 1544; Add 1349 1349 1144;
  Mul 1144 677 1320; Mul 1544 530 1112; Add 1144 1144 1544; Mul 1544 706 1376; Mul 1542 782 1459;
  Add 1544 1544 1542; Mul 1542 712 1378; Mul 1541 481 1560; Add 1542 1542 1541; Add 1544 1544 1542;
  Sub 1144 1144 1544; Mul 1544 719 1314; Mul 1542 519 1199; Add 1544 1544 1542].
Definition casadi_f0_67 : list instruction := [
  Mul 1542 709 1291; Mul 1202 216 1202; Mul 1541 348 1091; Sub 1202 1202 1541; Mul 1206 215 1206;
  Mul 1541 353 1084; Add 1206 1206 1541; Add 1202 1202 1206; Mul 1189 714 1189; Mul 1206 332 1611;
  Add 1189 1189 1206; Mul 1128 718 1128; Mul 1206 309 1186; Add 1128 1128 1206; Sub 1189 1189 1128;
  Add 1202 1202 1189; Mul 1189 706 1295; Mul 1128 497 1459; Add 1189 1189 1128; Mul 1128 712 1291;
  Mul 1206 494 1560; Add 1128 1128 1206; Sub 1189 1189 1128; Sub 1189 1202 1189; Mul 1189 156 1189;
  Mul 1128 494 1189; Add 1542 1542 1128; Sub 1544 1544 1542; Add 1144 1144 1544; Mul 1544 716 1203;
  Mul 1542 403 1181; Add 1544 1544 1542; Mul 1542 718 1597; Mul 1128 696 1186; Add 1206 1542 1128;
  Sub 1544 1544 1206; Mul 1206 714 1171; Mul 1541 797 1611; Add 1206 1206 1541; Sub 1544 1544 1206;
  Mul 1188 216 1188; Mul 1206 331 1091; Sub 1188 1188 1206; Mul 1206 215 1377; Mul 1541 414 1084;
  Add 1206 1206 1541; Sub 1206 1188 1206; Add 1544 1544 1206; Add 1144 1144 1544; Mul 1144 216 1144;
  Mul 1544 790 1091; Sub 1144 1144 1544; Mul 1544 704 1084; Mul 1206 677 1308; Mul 1541 513 1112;
  Add 1206 1206 1541; Mul 1541 706 1394; Mul 1535 483 1459; Add 1541 1541 1535; Mul 1535 712 1376;
  Mul 1533 782 1560; Add 1535 1535 1533; Add 1541 1541 1535; Sub 1206 1206 1541; Mul 1541 709 1295;
  Mul 1535 497 1189; Add 1541 1541 1535; Mul 1535 711 1314; Mul 1533 519 1361; Add 1535 1535 1533;
  Sub 1541 1541 1535; Add 1206 1206 1541; Mul 1541 716 1528; Mul 1535 293 1181; Add 1541 1541 1535;
  Mul 1535 718 1201; Mul 1533 415 1186; Add 1535 1535 1533; Sub 1541 1541 1535; Mul 1535 714 1140;
  Mul 1533 685 1611; Add 1532 1535 1533; Sub 1541 1541 1532; Mul 1532 216 1190; Mul 1526 416 1091;
  Sub 1532 1532 1526; Mul 1198 215 1198; Mul 1526 357 1084; Add 1524 1198 1526; Sub 1532 1532 1524;
  Add 1541 1541 1532; Add 1206 1206 1541; Mul 1206 215 1206; Add 1544 1544 1206; Sub 1206 1144 1544;
  Mul 1541 216 1246; Mul 1532 795 1091; Sub 1541 1541 1532; Mul 1140 215 1140; Mul 1532 685 1084;
  Add 1524 1140 1532; Sub 1541 1541 1524; Add 1199 1199 1541; Mul 1541 540 1199; Mul 1524 697 1328;
  Sub 1541 1541 1524; Mul 1524 695 1332; Mul 1597 216 1597; Mul 1523 696 1091; Sub 1597 1597 1523;
  Mul 1523 215 1564; Mul 1517 448 1084; Add 1523 1523 1517; Sub 1523 1597 1523; Add 1361 1361 1523;
  Mul 1523 544 1361; Add 1524 1524 1523; Add 1541 1541 1524; Sub 1541 1206 1541; Mul 1541 3 1541;
  Mul 1524 691 1019; Add 1541 1541 1524; Add 1349 1349 1541; Mul 1541 715 1400; Mul 1524 606 1596;
  Add 1541 1541 1524; Mul 1524 721 1402; Mul 1523 786 1472; Add 1524 1524 1523; Add 1541 1541 1524;
  Mul 1524 722 1094; Mul 1523 528 1530; Add 1524 1524 1523; Add 1541 1541 1524; Mul 1524 730 1311;
  Mul 1523 515 1615; Add 1524 1524 1523; Mul 1523 683 1213; Mul 1247 310 1247; Mul 1517 408 1160;
  Add 1247 1247 1517; Mul 1146 327 1146; Mul 1517 404 1184; Add 1146 1146 1517; Sub 1247 1247 1146;
  Mul 1174 731 1174; Mul 1146 363 1232; Add 1174 1174 1146; Mul 1228 725 1228].
Definition casadi_f0_68 : list instruction := [
  Mul 1146 387 1613; Add 1228 1228 1146; Sub 1174 1174 1228; Add 1247 1247 1174; Mul 1174 721 1213;
  Mul 1228 486 1472; Add 1174 1174 1228; Mul 1228 715 1287; Mul 1146 489 1596; Add 1228 1228 1146;
  Sub 1174 1174 1228; Sub 1174 1247 1174; Mul 1174 723 1174; Mul 1228 486 1174; Add 1523 1523 1228;
  Sub 1524 1524 1523; Add 1541 1541 1524; Mul 1524 725 1127; Mul 1523 800 1613; Add 1524 1524 1523;
  Mul 1523 731 1602; Mul 1228 703 1232; Add 1146 1523 1228; Mul 1517 727 1157; Mul 1515 306 1220;
  Add 1517 1517 1515; Add 1146 1146 1517; Add 1524 1524 1146; Mul 1146 310 1401; Mul 1517 361 1160;
  Add 1146 1146 1517; Mul 1227 327 1227; Mul 1517 386 1184; Add 1515 1227 1517; Mul 1514 318 1421;
  Mul 1581 59 1178; Add 1514 1514 1581; Add 1515 1515 1514; Add 1146 1146 1515; Sub 1524 1524 1146;
  Add 1541 1541 1524; Mul 1524 216 1541; Mul 1146 690 1091; Sub 1524 1524 1146; Mul 1146 807 1084;
  Mul 1515 715 1253; Mul 1514 705 1596; Add 1515 1515 1514; Mul 1514 721 1400; Mul 1581 606 1472;
  Add 1514 1514 1581; Add 1515 1515 1514; Mul 1514 722 1307; Mul 1581 510 1530; Add 1514 1514 1581;
  Add 1515 1515 1514; Mul 1514 683 1287; Mul 1581 489 1174; Add 1514 1514 1581; Mul 1581 726 1311;
  Mul 1577 515 1182; Add 1581 1581 1577; Sub 1514 1514 1581; Add 1515 1515 1514; Mul 1514 725 1132;
  Mul 1581 692 1613; Add 1577 1514 1581; Mul 1574 731 1242; Mul 1573 465 1232; Add 1574 1574 1573;
  Mul 1573 727 1537; Mul 1569 785 1220; Add 1573 1573 1569; Add 1574 1574 1573; Add 1577 1577 1574;
  Mul 1239 310 1239; Mul 1574 412 1160; Add 1573 1239 1574; Mul 1569 327 1229; Mul 1566 407 1184;
  Add 1569 1569 1566; Mul 1566 318 1495; Mul 1565 580 1178; Add 1566 1566 1565; Add 1569 1569 1566;
  Add 1573 1573 1569; Sub 1577 1577 1573; Add 1515 1515 1577; Mul 1577 215 1515; Add 1146 1146 1577;
  Sub 1577 1524 1146; Mul 1132 310 1132; Mul 1573 692 1160; Add 1569 1132 1573; Mul 1566 327 1210;
  Mul 1565 798 1184; Add 1566 1566 1565; Mul 1565 318 1534; Mul 1561 640 1178; Add 1565 1565 1561;
  Add 1566 1566 1565; Add 1569 1569 1566; Sub 1615 1615 1569; Mul 1569 540 1615; Mul 1566 811 1328;
  Sub 1569 1569 1566; Mul 1566 813 1332; Mul 1565 310 1572; Mul 1561 464 1160; Add 1565 1565 1561;
  Mul 1602 327 1602; Mul 1561 703 1184; Add 1558 1602 1561; Mul 1557 318 1571; Mul 1553 662 1178;
  Add 1557 1557 1553; Add 1558 1558 1557; Add 1565 1565 1558; Sub 1182 1182 1565; Mul 1565 544 1182;
  Add 1566 1566 1565; Add 1569 1569 1566; Sub 1569 1577 1569; Mul 1569 4 1569; Mul 1566 812 1020;
  Add 1569 1569 1566; Add 1349 1349 1569; Mul 1569 728 1424; Mul 1566 609 1614; Add 1569 1569 1566;
  Mul 1566 733 1426; Mul 1565 604 1619; Add 1566 1566 1565; Add 1569 1569 1566; Mul 1566 734 1257;
  Mul 1565 426 1620; Add 1566 1566 1565; Add 1569 1569 1566; Mul 1566 739 1266; Mul 1565 438 1281;
  Add 1566 1566 1565; Mul 1565 816 1274; Mul 1249 358 1249; Mul 1558 462 1211; Add 1249 1249 1558;
  Mul 1243 372 1243; Mul 1558 458 1218; Add 1243 1243 1558; Sub 1249 1249 1243].
Definition casadi_f0_69 : list instruction := [
  Mul 1252 741 1252; Mul 1243 417 1273; Add 1252 1252 1243; Mul 1269 736 1269; Mul 1243 441 1623;
  Add 1269 1269 1243; Sub 1252 1252 1269; Add 1249 1249 1252; Mul 1252 733 1274; Mul 1269 445 1619;
  Add 1252 1252 1269; Mul 1269 728 1262; Mul 1243 434 1614; Add 1269 1269 1243; Sub 1252 1252 1269;
  Sub 1249 1249 1252; Mul 1249 430 1249; Mul 1252 445 1249; Add 1565 1565 1252; Sub 1566 1566 1565;
  Add 1569 1569 1566; Mul 1566 736 1166; Mul 1565 803 1623; Add 1566 1566 1565; Mul 1565 741 1608;
  Mul 1252 710 1273; Add 1269 1565 1252; Mul 1243 738 1191; Mul 1558 356 1260; Add 1243 1243 1558;
  Add 1269 1269 1243; Add 1566 1566 1269; Mul 1269 358 1425; Mul 1243 352 1211; Add 1269 1269 1243;
  Mul 1268 372 1268; Mul 1243 440 1218; Add 1558 1268 1243; Mul 1557 369 1444; Mul 1553 36 1214;
  Add 1557 1557 1553; Add 1558 1558 1557; Add 1269 1269 1558; Sub 1566 1566 1269; Add 1569 1569 1566;
  Mul 1566 216 1569; Mul 1269 814 1091; Sub 1566 1566 1269; Mul 1269 817 1084; Mul 1614 13 1614;
  Mul 1558 728 1441; Sub 1614 1614 1558; Mul 1558 733 1424; Mul 1619 609 1619; Add 1558 1558 1619;
  Add 1614 1614 1558; Mul 1558 734 1272; Mul 1620 443 1620; Add 1558 1558 1620; Add 1614 1614 1558;
  Mul 1558 816 1262; Mul 1620 434 1249; Add 1558 1558 1620; Mul 1620 735 1266; Mul 1619 438 1621;
  Add 1620 1620 1619; Sub 1558 1558 1620; Add 1614 1614 1558; Mul 1558 736 1601; Mul 1620 699 1623;
  Add 1619 1558 1620; Mul 1557 741 1282; Mul 1553 394 1273; Add 1557 1557 1553; Mul 1553 738 1546;
  Mul 1326 245 1260; Add 1553 1553 1326; Add 1557 1557 1553; Add 1619 1619 1557; Mul 1280 358 1280;
  Mul 1557 466 1211; Add 1553 1280 1557; Mul 1326 372 1270; Mul 1549 359 1218; Add 1326 1326 1549;
  Mul 1549 369 1508; Mul 1509 593 1214; Add 1549 1549 1509; Add 1326 1326 1549; Add 1553 1553 1326;
  Sub 1619 1619 1553; Add 1614 1614 1619; Mul 1619 215 1614; Add 1269 1269 1619; Sub 1619 1566 1269;
  Mul 1601 358 1601; Mul 1553 699 1211; Add 1326 1601 1553; Mul 1549 372 1109; Mul 1509 801 1218;
  Add 1549 1549 1509; Mul 1509 369 1543; Mul 1446 645 1214; Add 1509 1509 1446; Add 1549 1549 1509;
  Add 1326 1326 1549; Sub 1281 1281 1326; Mul 1326 540 1281; Mul 1549 820 1328; Sub 1326 1326 1549;
  Mul 1549 822 1332; Mul 1509 358 1580; Mul 1446 457 1211; Add 1509 1509 1446; Mul 1608 372 1608;
  Mul 1446 710 1218; Add 1423 1608 1446; Mul 1399 369 1579; Mul 1375 666 1214; Add 1399 1399 1375;
  Add 1423 1423 1399; Add 1509 1509 1423; Sub 1621 1621 1509; Mul 1509 544 1621; Add 1549 1549 1509;
  Add 1326 1326 1549; Sub 1326 1619 1326; Mul 1326 5 1326; Mul 1549 821 1021; Add 1326 1326 1549;
  Add 1349 1349 1326; Mul 1632 85 1632; Mul 1628 79 1628; Sub 1632 1632 1628; Mul 1637 54 1637;
  Mul 1617 61 1617; Sub 1637 1637 1617; Mul 1645 19 1645; Mul 1617 763 1036; Sub 1645 1645 1617;
  Mul 1617 751 1035; Mul 1635 35 1635; Add 1617 1617 1635; Sub 1645 1645 1617; Mul 1648 55 1648;
  Mul 1634 62 1634; Sub 1648 1648 1634; Add 1645 1645 1648; Add 1637 1637 1645].
Definition casadi_f0_70 : list instruction := [
  Mul 1633 86 1633; Mul 1641 91 1641; Sub 1633 1633 1641; Add 1633 1637 1633; Add 1632 1632 1633;
  Mul 1023 102 1023; Sub 1023 1632 1023; Mul 1629 101 1629; Add 1023 1023 1629; Add 1349 1349 1023;
  Mul 1023 777 1349; Sub 1630 1630 1023; Add 1082 1082 1630; Div 1630 1055 92; Div 1023 778 92;
  Mul 1629 1023 1062; Sub 1630 1630 1629; Mul 1629 767 1630; Mul 1516 674 1516; Mul 1633 630 1587;
  Sub 1516 1516 1633; Mul 1633 654 1590; Mul 1555 680 1555; Add 1633 1633 1555; Add 1225 1225 1594;
  Sub 1633 1633 1225; Add 1516 1516 1633; Mul 1633 615 1084; Mul 1469 215 1469; Add 1633 1633 1469;
  Mul 1373 216 1373; Mul 1469 7 1091; Sub 1373 1373 1469; Sub 1633 1633 1373; Add 1516 1516 1633;
  Mul 1516 0 1516; Mul 1633 771 1016; Add 1516 1516 1633; Mul 1633 748 1331; Mul 1373 216 1317;
  Mul 1469 523 1091; Sub 1373 1373 1469; Add 1373 1587 1373; Mul 1373 672 1373; Mul 1469 545 1373;
  Sub 1633 1633 1469; Mul 1469 216 1303; Mul 1225 502 1091; Sub 1469 1469 1225; Mul 1225 215 1300;
  Mul 1594 505 1084; Add 1225 1225 1594; Add 1469 1469 1225; Sub 1469 1469 1136; Mul 1469 672 1469;
  Mul 1225 504 1469; Mul 1594 750 1095; Add 1225 1225 1594; Mul 1594 215 1317; Mul 1555 523 1084;
  Add 1594 1594 1555; Sub 1594 1590 1594; Mul 1594 672 1594; Mul 1555 541 1594; Mul 1641 627 1327;
  Add 1555 1555 1641; Sub 1225 1225 1555; Add 1633 1633 1225; Mul 1310 215 1310; Mul 1225 517 1084;
  Add 1310 1310 1225; Mul 1321 216 1321; Mul 1225 532 1091; Sub 1321 1321 1225; Sub 1310 1310 1321;
  Mul 1321 627 1303; Mul 1225 502 1594; Add 1321 1321 1225; Mul 1225 748 1300; Mul 1555 505 1373;
  Sub 1225 1225 1555; Sub 1321 1321 1225; Add 1310 1310 1321; Mul 1310 508 1310; Mul 1321 744 1306;
  Add 1310 1310 1321; Mul 1321 215 1354; Mul 1225 783 1084; Add 1321 1321 1225; Mul 1355 216 1355;
  Mul 1225 488 1091; Sub 1355 1355 1225; Sub 1321 1321 1355; Mul 1355 748 1317; Mul 1373 523 1373;
  Sub 1355 1355 1373; Mul 1303 750 1303; Mul 1373 502 1469; Add 1303 1303 1373; Sub 1355 1355 1303;
  Add 1321 1321 1355; Mul 1321 536 1321; Mul 1355 824 1324; Add 1321 1321 1355; Sub 1310 1310 1321;
  Mul 1370 215 1370; Mul 1321 491 1084; Add 1370 1370 1321; Mul 1354 216 1354; Mul 1321 783 1091;
  Sub 1354 1354 1321; Sub 1370 1370 1354; Mul 1300 750 1300; Mul 1469 505 1469; Add 1300 1300 1469;
  Mul 1317 627 1317; Mul 1594 523 1594; Add 1317 1317 1594; Sub 1300 1300 1317; Add 1370 1370 1300;
  Mul 1370 526 1370; Mul 1300 825 1093; Add 1370 1370 1300; Sub 1310 1310 1370; Add 1633 1633 1310;
  Mul 1251 674 1251; Mul 1310 792 1587; Sub 1251 1251 1310; Add 1168 1168 1448; Mul 1448 298 1136;
  Sub 1554 1554 1559; Sub 1562 1562 1567; Sub 1570 1570 1575; Sub 1578 1578 1583; Add 1570 1570 1578;
  Add 1562 1562 1570; Add 1554 1554 1562; Mul 1583 676 1554; Add 1448 1448 1583; Sub 1168 1168 1448;
  Add 1251 1251 1168; Mul 1168 468 1084; Mul 1145 215 1145; Add 1168 1168 1145; Sub 1168 1168 1143;
  Add 1251 1251 1168; Mul 1251 216 1251; Mul 1168 823 1091; Sub 1251 1251 1168].
Definition casadi_f0_71 : list instruction := [
  Mul 1168 686 1590; Mul 1556 680 1556; Add 1168 1168 1556; Mul 1556 232 1136; Add 1169 1169 1520;
  Add 1207 1207 1529; Add 1248 1248 1538; Add 1241 1241 1547; Add 1248 1248 1241; Add 1207 1207 1248;
  Add 1169 1169 1207; Mul 1547 676 1169; Add 1556 1556 1547; Sub 1168 1168 1556; Add 1162 1162 1168;
  Add 1519 1519 1154; Mul 1319 216 1319; Mul 1154 461 1091; Sub 1319 1319 1154; Sub 1519 1519 1319;
  Add 1162 1162 1519; Mul 1162 215 1162; Mul 1519 668 1084; Add 1162 1162 1519; Sub 1251 1251 1162;
  Add 1582 1582 1290; Mul 1245 216 1245; Mul 1290 794 1091; Sub 1245 1245 1290; Sub 1582 1582 1245;
  Mul 1582 540 1582; Mul 1245 664 1328; Sub 1582 1582 1245; Mul 1245 808 1084; Mul 1159 215 1159;
  Add 1245 1245 1159; Sub 1245 1245 1592; Mul 1245 544 1245; Mul 1592 642 1332; Add 1245 1245 1592;
  Add 1582 1582 1245; Sub 1251 1251 1582; Add 1633 1633 1251; Mul 1633 1 1633; Mul 1251 760 1017;
  Add 1633 1633 1251; Add 1516 1516 1633; Mul 1148 674 1148; Mul 1633 233 1587; Sub 1148 1148 1633;
  Mul 1633 789 1590; Mul 1586 680 1586; Add 1633 1633 1586; Mul 1586 637 1136; Mul 1169 215 1169;
  Mul 1251 232 1084; Add 1169 1169 1251; Mul 1554 216 1554; Mul 1251 298 1091; Sub 1554 1554 1251;
  Sub 1169 1169 1554; Add 1161 1161 1169; Mul 1161 676 1161; Add 1586 1586 1161; Sub 1633 1633 1586;
  Add 1148 1148 1633; Sub 1333 1333 1322; Add 1148 1148 1333; Mul 1148 2 1148; Mul 1333 826 1018;
  Add 1148 1148 1333; Add 1516 1516 1148; Mul 1148 674 1199; Mul 1333 697 1587; Sub 1148 1148 1333;
  Mul 1333 695 1590; Mul 1322 680 1361; Add 1333 1333 1322; Mul 1322 647 1136; Mul 1633 216 1562;
  Mul 1586 411 1091; Sub 1633 1633 1586; Mul 1586 215 1207; Mul 1161 302 1084; Add 1586 1586 1161;
  Sub 1633 1633 1586; Add 1189 1189 1633; Mul 1633 676 1189; Add 1322 1322 1633; Sub 1333 1333 1322;
  Add 1148 1148 1333; Sub 1544 1544 1144; Add 1148 1148 1544; Mul 1148 3 1148; Mul 1544 347 1019;
  Add 1148 1148 1544; Add 1516 1516 1148; Mul 1148 674 1615; Mul 1544 811 1587; Sub 1148 1148 1544;
  Mul 1544 813 1590; Mul 1144 680 1182; Add 1544 1544 1144; Mul 1144 802 1136; Mul 1333 310 1248;
  Mul 1322 252 1160; Add 1333 1333 1322; Mul 1322 327 1570; Mul 1633 339 1184; Add 1322 1322 1633;
  Mul 1604 318 1604; Mul 1633 701 1178; Add 1586 1604 1633; Add 1322 1322 1586; Add 1333 1333 1322;
  Sub 1174 1174 1333; Mul 1333 676 1174; Add 1144 1144 1333; Sub 1544 1544 1144; Add 1148 1148 1544;
  Sub 1146 1146 1524; Add 1148 1148 1146; Mul 1148 4 1148; Mul 1146 698 1020; Add 1148 1148 1146;
  Add 1516 1516 1148; Mul 1148 674 1281; Mul 1146 820 1587; Sub 1148 1148 1146; Mul 1146 822 1590;
  Mul 1524 680 1621; Add 1146 1146 1524; Mul 1524 788 1136; Mul 1544 358 1241; Mul 1144 234 1211;
  Add 1544 1544 1144; Mul 1144 372 1578; Mul 1333 355 1218; Add 1144 1144 1333; Mul 1610 369 1610;
  Mul 1333 708 1214; Add 1322 1610 1333; Add 1144 1144 1322; Add 1544 1544 1144; Sub 1249 1249 1544;
  Mul 1544 676 1249; Add 1524 1524 1544; Sub 1146 1146 1524; Add 1148 1148 1146].
Definition casadi_f0_72 : list instruction := [
  Sub 1269 1269 1566; Add 1148 1148 1269; Mul 1148 5 1148; Mul 1269 809 1021; Add 1148 1148 1269;
  Add 1516 1516 1148; Sub 1632 1632 1516; Mul 1516 778 1632; Add 1629 1629 1516; Sub 1082 1082 1629;
  Div 1629 1060 92; Div 1516 769 92; Mul 1148 1516 1062; Sub 1629 1629 1148; Mul 1148 775 1629;
  Add 1521 1521 1599; Mul 1599 658 1186; Mul 1563 718 1563; Add 1599 1599 1563; Sub 1521 1521 1599;
  Mul 1599 635 1611; Mul 1525 714 1525; Add 1599 1599 1525; Sub 1521 1521 1599; Mul 1397 216 1397;
  Mul 1599 90 1091; Sub 1397 1397 1599; Mul 1599 566 1084; Mul 1482 215 1482; Add 1599 1599 1482;
  Sub 1397 1397 1599; Add 1521 1521 1397; Mul 1521 0 1521; Mul 1397 818 1016; Add 1521 1521 1397;
  Mul 1397 216 1314; Mul 1599 519 1091; Sub 1397 1397 1599; Sub 1397 1397 1611; Mul 1397 156 1397;
  Mul 1599 545 1397; Mul 1482 684 1331; Add 1599 1599 1482; Mul 1482 216 1291; Mul 1525 494 1091;
  Sub 1482 1482 1525; Mul 1525 215 1295; Mul 1563 497 1084; Add 1525 1525 1563; Add 1482 1482 1525;
  Sub 1482 1181 1482; Mul 1482 156 1482; Mul 1525 504 1482; Mul 1563 660 1095; Add 1525 1525 1563;
  Mul 1563 215 1314; Mul 1269 519 1084; Add 1563 1563 1269; Sub 1563 1563 1186; Mul 1563 156 1563;
  Mul 1269 541 1563; Mul 1566 827 1327; Add 1269 1269 1566; Sub 1525 1525 1269; Add 1599 1599 1525;
  Mul 1320 216 1320; Mul 1525 530 1091; Sub 1320 1320 1525; Mul 1308 215 1308; Mul 1525 513 1084;
  Add 1308 1308 1525; Sub 1320 1320 1308; Mul 1308 827 1291; Mul 1525 494 1563; Add 1308 1308 1525;
  Mul 1525 684 1295; Mul 1269 497 1397; Add 1525 1525 1269; Sub 1308 1308 1525; Add 1320 1320 1308;
  Mul 1308 508 1320; Mul 1525 656 1306; Add 1308 1308 1525; Mul 1378 216 1378; Mul 1525 481 1091;
  Sub 1378 1378 1525; Mul 1525 215 1376; Mul 1269 782 1084; Add 1525 1525 1269; Sub 1378 1378 1525;
  Mul 1525 684 1314; Mul 1269 519 1397; Add 1525 1525 1269; Mul 1291 660 1291; Mul 1269 494 1482;
  Add 1291 1291 1269; Sub 1525 1525 1291; Add 1378 1378 1525; Mul 1525 536 1378; Mul 1291 829 1324;
  Add 1525 1525 1291; Sub 1308 1308 1525; Mul 1376 216 1376; Mul 1525 782 1091; Sub 1376 1376 1525;
  Mul 1394 215 1394; Mul 1525 483 1084; Add 1394 1394 1525; Sub 1376 1376 1394; Mul 1295 660 1295;
  Mul 1394 497 1482; Add 1295 1295 1394; Mul 1314 827 1314; Mul 1394 519 1563; Add 1314 1314 1394;
  Sub 1295 1295 1314; Add 1376 1376 1295; Mul 1295 526 1376; Mul 1314 830 1093; Add 1295 1295 1314;
  Sub 1308 1308 1295; Add 1599 1599 1308; Mul 1308 411 1181; Mul 1562 716 1562; Add 1308 1308 1562;
  Add 1128 1128 1542; Sub 1308 1308 1128; Mul 1128 795 1611; Mul 1246 714 1246; Add 1128 1128 1246;
  Sub 1308 1308 1128; Mul 1128 416 1084; Mul 1190 215 1190; Add 1128 1128 1190; Sub 1188 1188 1128;
  Add 1308 1308 1188; Mul 1308 216 1308; Mul 1188 828 1091; Sub 1308 1308 1188; Mul 1188 302 1181;
  Mul 1207 716 1207; Add 1188 1188 1207; Mul 1207 448 1186; Mul 1564 718 1564; Add 1207 1207 1564;
  Sub 1188 1188 1207; Add 1533 1533 1535; Sub 1188 1188 1533; Mul 1377 216 1377].
Definition casadi_f0_73 : list instruction := [
  Mul 1533 414 1091; Sub 1377 1377 1533; Add 1526 1526 1198; Sub 1377 1377 1526; Add 1188 1188 1377;
  Mul 1188 215 1188; Mul 1377 832 1084; Add 1188 1188 1377; Sub 1377 1308 1188; Mul 1171 216 1171;
  Mul 1526 797 1091; Sub 1171 1171 1526; Add 1532 1532 1140; Sub 1171 1171 1532; Mul 1532 540 1171;
  Mul 1140 835 1328; Sub 1532 1532 1140; Mul 1140 415 1084; Mul 1201 215 1201; Add 1140 1140 1201;
  Sub 1597 1597 1140; Mul 1140 544 1597; Mul 1201 837 1332; Add 1140 1140 1201; Add 1532 1532 1140;
  Sub 1377 1377 1532; Add 1599 1599 1377; Mul 1599 1 1599; Mul 1377 632 1017; Add 1599 1599 1377;
  Add 1521 1521 1599; Mul 1397 678 1397; Mul 1599 684 1155; Add 1397 1397 1599; Mul 1563 673 1563;
  Mul 1599 827 1585; Add 1563 1563 1599; Mul 1482 799 1482; Mul 1599 660 1121; Add 1482 1482 1599;
  Add 1563 1563 1482; Add 1397 1397 1563; Mul 1376 602 1376; Mul 1563 830 1340; Add 1376 1376 1563;
  Mul 1378 670 1378; Mul 1563 829 1552; Add 1378 1378 1563; Mul 1320 671 1320; Mul 1563 656 1512;
  Add 1320 1320 1563; Sub 1378 1378 1320; Add 1376 1376 1378; Add 1397 1397 1376; Mul 1171 674 1171;
  Mul 1376 835 1587; Sub 1171 1171 1376; Mul 1597 680 1597; Mul 1376 837 1590; Add 1597 1597 1376;
  Mul 1203 216 1203; Mul 1376 403 1091; Sub 1203 1203 1376; Mul 1376 293 1084; Mul 1528 215 1528;
  Add 1376 1376 1528; Sub 1203 1203 1376; Mul 1203 676 1203; Mul 1376 839 1136; Add 1203 1203 1376;
  Sub 1597 1597 1203; Add 1171 1171 1597; Sub 1188 1188 1308; Add 1171 1171 1188; Add 1397 1397 1171;
  Mul 1397 2 1397; Mul 1171 834 1018; Add 1397 1397 1171; Add 1521 1521 1397; Mul 1397 647 1181;
  Mul 1189 716 1189; Add 1397 1397 1189; Mul 1189 695 1186; Mul 1361 718 1361; Add 1189 1189 1361;
  Sub 1397 1397 1189; Mul 1189 697 1611; Mul 1199 714 1199; Add 1189 1189 1199; Sub 1397 1397 1189;
  Add 1397 1397 1206; Mul 1397 3 1397; Mul 1206 836 1019; Add 1397 1397 1206; Add 1521 1521 1397;
  Mul 1397 802 1181; Mul 1206 716 1174; Add 1397 1397 1206; Mul 1206 813 1186; Mul 1189 718 1182;
  Add 1206 1206 1189; Sub 1397 1397 1206; Mul 1206 811 1611; Mul 1189 714 1615; Add 1206 1206 1189;
  Sub 1397 1397 1206; Add 1397 1397 1577; Mul 1397 4 1397; Mul 1577 702 1020; Add 1397 1397 1577;
  Add 1521 1521 1397; Mul 1397 788 1181; Mul 1577 716 1249; Add 1397 1397 1577; Mul 1577 822 1186;
  Mul 1206 718 1621; Add 1577 1577 1206; Sub 1397 1397 1577; Mul 1577 820 1611; Mul 1206 714 1281;
  Add 1577 1577 1206; Sub 1397 1397 1577; Add 1397 1397 1619; Mul 1397 5 1397; Mul 1619 810 1021;
  Add 1397 1397 1619; Add 1521 1521 1397; Add 1521 1521 1637; Mul 1637 769 1521; Sub 1148 1148 1637;
  Add 1082 1082 1148; Div 1148 1034 92; Div 1637 761 92; Mul 1397 1637 1062; Sub 1148 1148 1397;
  Mul 1397 815 1148; Mul 1619 640 1613; Mul 1534 725 1534; Add 1619 1619 1534; Mul 1534 662 1232;
  Mul 1571 731 1571; Add 1534 1534 1571; Add 1224 1224 1616; Add 1534 1534 1224; Add 1619 1619 1534;
  Mul 1534 580 1160; Mul 1495 310 1495; Add 1534 1534 1495; Mul 1495 59 1184].
Definition casadi_f0_74 : list instruction := [
  Mul 1421 327 1421; Add 1495 1495 1421; Add 1618 1618 1238; Add 1495 1495 1618; Add 1534 1534 1495;
  Sub 1619 1619 1534; Mul 1619 0 1619; Mul 1534 819 1016; Add 1619 1619 1534; Mul 1534 327 1311;
  Mul 1495 515 1184; Add 1534 1534 1495; Mul 1495 318 1287; Mul 1618 489 1178; Add 1495 1495 1618;
  Sub 1534 1534 1495; Sub 1534 1613 1534; Mul 1534 723 1534; Mul 1495 545 1534; Mul 1618 831 1331;
  Add 1495 1495 1618; Mul 1618 310 1287; Mul 1238 489 1160; Add 1618 1618 1238; Mul 1238 327 1213;
  Mul 1421 486 1184; Add 1238 1238 1421; Sub 1618 1618 1238; Sub 1618 1220 1618; Mul 1618 723 1618;
  Mul 1238 504 1618; Mul 1421 840 1095; Add 1238 1238 1421; Mul 1421 318 1213; Mul 1224 486 1178;
  Add 1421 1421 1224; Mul 1224 310 1311; Mul 1616 515 1160; Add 1224 1224 1616; Sub 1421 1421 1224;
  Sub 1421 1232 1421; Mul 1421 723 1421; Mul 1224 541 1421; Mul 1616 842 1327; Add 1224 1224 1616;
  Sub 1238 1238 1224; Add 1495 1495 1238; Mul 1238 842 1213; Mul 1224 486 1421; Add 1238 1238 1224;
  Mul 1224 831 1287; Mul 1616 489 1534; Add 1224 1224 1616; Sub 1238 1238 1224; Mul 1224 310 1307;
  Mul 1616 510 1160; Add 1224 1224 1616; Mul 1616 327 1094; Mul 1571 528 1184; Add 1616 1616 1571;
  Add 1224 1224 1616; Mul 1259 318 1259; Mul 1616 479 1178; Add 1259 1259 1616; Add 1224 1224 1259;
  Sub 1238 1238 1224; Mul 1224 508 1238; Mul 1259 841 1306; Add 1224 1224 1259; Mul 1259 831 1311;
  Mul 1616 515 1534; Add 1259 1259 1616; Mul 1213 840 1213; Mul 1616 486 1618; Add 1213 1213 1616;
  Sub 1259 1259 1213; Mul 1213 310 1400; Mul 1616 606 1160; Add 1213 1213 1616; Mul 1402 327 1402;
  Mul 1616 786 1184; Add 1402 1402 1616; Add 1213 1213 1402; Mul 1094 318 1094; Mul 1402 528 1178;
  Add 1094 1094 1402; Add 1213 1213 1094; Sub 1259 1259 1213; Mul 1213 536 1259; Mul 1094 844 1324;
  Add 1213 1213 1094; Sub 1224 1224 1213; Mul 1287 840 1287; Mul 1213 489 1618; Add 1287 1287 1213;
  Mul 1311 842 1311; Mul 1213 515 1421; Add 1311 1311 1213; Sub 1287 1287 1311; Mul 1253 310 1253;
  Mul 1311 705 1160; Add 1253 1253 1311; Mul 1400 327 1400; Mul 1311 606 1184; Add 1400 1400 1311;
  Add 1253 1253 1400; Mul 1307 318 1307; Mul 1400 510 1178; Add 1307 1307 1400; Add 1253 1253 1307;
  Sub 1287 1287 1253; Mul 1253 526 1287; Mul 1307 845 1093; Add 1253 1253 1307; Sub 1224 1224 1253;
  Add 1495 1495 1224; Add 1573 1573 1132; Mul 1132 800 1184; Mul 1127 327 1127; Add 1132 1132 1127;
  Mul 1127 643 1178; Mul 1539 318 1539; Add 1127 1127 1539; Add 1132 1132 1127; Add 1573 1573 1132;
  Mul 1132 540 1573; Mul 1127 843 1328; Sub 1132 1132 1127; Mul 1127 465 1160; Mul 1242 310 1242;
  Add 1127 1127 1242; Add 1561 1561 1602; Mul 1602 665 1178; Mul 1576 318 1576; Add 1602 1602 1576;
  Add 1561 1561 1602; Add 1127 1127 1561; Mul 1561 544 1127; Mul 1602 847 1332; Add 1561 1561 1602;
  Add 1132 1132 1561; Mul 1561 798 1613; Mul 1210 725 1210; Add 1561 1561 1210; Add 1228 1228 1523;
  Mul 1523 339 1220; Mul 1570 727 1570; Add 1523 1523 1570; Add 1228 1228 1523].
Definition casadi_f0_75 : list instruction := [
  Add 1561 1561 1228; Mul 1228 407 1160; Mul 1229 310 1229; Add 1228 1228 1229; Add 1517 1517 1227;
  Mul 1227 595 1178; Mul 1409 318 1409; Add 1227 1227 1409; Add 1517 1517 1227; Add 1228 1228 1517;
  Sub 1561 1561 1228; Mul 1561 216 1561; Mul 1228 848 1091; Sub 1561 1561 1228; Add 1581 1581 1514;
  Mul 1514 464 1232; Mul 1572 731 1572; Add 1514 1514 1572; Mul 1572 252 1220; Mul 1248 727 1248;
  Add 1572 1572 1248; Add 1514 1514 1572; Add 1581 1581 1514; Add 1574 1574 1239; Mul 1239 361 1184;
  Mul 1401 327 1401; Add 1239 1239 1401; Mul 1401 620 1178; Mul 1485 318 1485; Add 1401 1401 1485;
  Add 1239 1239 1401; Add 1574 1574 1239; Sub 1581 1581 1574; Mul 1581 215 1581; Mul 1574 850 1084;
  Add 1581 1581 1574; Sub 1574 1561 1581; Add 1132 1132 1574; Add 1495 1495 1132; Mul 1495 1 1495;
  Mul 1132 838 1017; Add 1495 1495 1132; Add 1619 1619 1495; Mul 1495 678 1534; Mul 1132 831 1155;
  Add 1495 1495 1132; Mul 1132 673 1421; Mul 1239 842 1585; Add 1132 1132 1239; Mul 1239 799 1618;
  Mul 1401 840 1121; Add 1239 1239 1401; Add 1132 1132 1239; Add 1495 1495 1132; Mul 1132 602 1287;
  Mul 1239 845 1340; Add 1132 1132 1239; Mul 1239 670 1259; Mul 1401 844 1552; Add 1239 1239 1401;
  Mul 1401 671 1238; Mul 1485 841 1512; Add 1401 1401 1485; Sub 1239 1239 1401; Add 1132 1132 1239;
  Add 1495 1495 1132; Mul 1132 785 1160; Mul 1537 310 1537; Add 1132 1132 1537; Mul 1537 306 1184;
  Mul 1157 327 1157; Add 1537 1537 1157; Add 1633 1633 1604; Add 1537 1537 1633; Add 1132 1132 1537;
  Mul 1537 676 1132; Mul 1633 853 1136; Add 1537 1537 1633; Mul 1633 680 1127; Mul 1604 847 1590;
  Add 1633 1633 1604; Sub 1537 1537 1633; Mul 1633 674 1573; Mul 1604 843 1587; Sub 1633 1633 1604;
  Sub 1537 1537 1633; Sub 1581 1581 1561; Add 1537 1537 1581; Add 1495 1495 1537; Mul 1495 2 1495;
  Mul 1537 846 1018; Add 1495 1495 1537; Add 1619 1619 1495; Mul 1534 717 1534; Mul 1495 831 1612;
  Add 1534 1534 1495; Mul 1618 787 1618; Mul 1495 840 1202; Add 1618 1618 1495; Mul 1421 713 1421;
  Mul 1495 842 1607; Add 1421 1421 1495; Sub 1618 1618 1421; Add 1534 1534 1618; Mul 1238 677 1238;
  Mul 1618 841 1112; Add 1238 1238 1618; Mul 1259 712 1259; Mul 1618 844 1560; Add 1259 1259 1618;
  Sub 1238 1238 1259; Mul 1287 706 1287; Mul 1259 845 1459; Add 1287 1287 1259; Sub 1238 1238 1287;
  Add 1534 1534 1238; Mul 1573 714 1573; Mul 1238 843 1611; Add 1573 1573 1238; Mul 1127 718 1127;
  Mul 1238 847 1186; Add 1127 1127 1238; Mul 1132 716 1132; Mul 1238 853 1181; Add 1132 1132 1238;
  Sub 1127 1127 1132; Add 1573 1573 1127; Add 1573 1573 1574; Add 1534 1534 1573; Mul 1534 3 1534;
  Mul 1573 854 1019; Add 1534 1534 1573; Add 1619 1619 1534; Mul 1534 811 1613; Mul 1615 725 1615;
  Add 1534 1534 1615; Mul 1615 813 1232; Mul 1182 731 1182; Add 1615 1615 1182; Mul 1182 802 1220;
  Mul 1174 727 1174; Add 1182 1182 1174; Add 1615 1615 1182; Add 1534 1534 1615; Mul 1615 807 1160;
  Mul 1515 310 1515; Add 1615 1615 1515; Mul 1515 690 1184; Mul 1541 327 1541].
Definition casadi_f0_76 : list instruction := [
  Add 1515 1515 1541; Mul 1541 720 1178; Mul 1271 318 1271; Add 1541 1541 1271; Add 1515 1515 1541;
  Add 1615 1615 1515; Sub 1534 1534 1615; Mul 1534 4 1534; Mul 1615 851 1020; Add 1534 1534 1615;
  Add 1619 1619 1534; Mul 1534 820 1613; Mul 1615 725 1281; Add 1534 1534 1615; Mul 1615 822 1232;
  Mul 1515 731 1621; Add 1615 1615 1515; Mul 1515 788 1220; Mul 1541 727 1249; Add 1515 1515 1541;
  Add 1615 1615 1515; Add 1534 1534 1615; Mul 1615 817 1160; Mul 1515 310 1614; Add 1615 1615 1515;
  Mul 1515 814 1184; Mul 1541 327 1569; Add 1515 1515 1541; Mul 1541 732 1178; Mul 1271 318 1385;
  Add 1541 1541 1271; Add 1515 1515 1541; Add 1615 1615 1515; Sub 1534 1534 1615; Mul 1534 5 1534;
  Mul 1615 852 1021; Add 1534 1534 1615; Add 1619 1619 1534; Sub 1638 1638 1619; Mul 1619 761 1638;
  Add 1397 1397 1619; Add 1082 1082 1397; Div 1397 1075 92; Div 1619 754 92; Mul 1534 1619 1062;
  Sub 1397 1397 1534; Mul 1534 833 1397; Mul 1615 645 1623; Mul 1543 736 1543; Add 1615 1615 1543;
  Mul 1543 666 1273; Mul 1579 741 1579; Add 1543 1543 1579; Add 1625 1625 1624; Add 1543 1543 1625;
  Add 1615 1615 1543; Mul 1543 593 1211; Mul 1508 358 1508; Add 1543 1543 1508; Mul 1508 36 1218;
  Mul 1444 372 1444; Add 1508 1508 1444; Add 1626 1626 1279; Add 1508 1508 1626; Add 1543 1543 1508;
  Sub 1615 1615 1543; Mul 1543 0 1615; Mul 1016 849 1016; Add 1543 1543 1016; Mul 1016 372 1266;
  Mul 1508 438 1218; Add 1016 1016 1508; Mul 1508 369 1262; Mul 1626 434 1214; Add 1508 1508 1626;
  Sub 1016 1016 1508; Sub 1016 1623 1016; Mul 1016 430 1016; Mul 1508 545 1016; Mul 1331 856 1331;
  Add 1508 1508 1331; Mul 1331 358 1262; Mul 1626 434 1211; Add 1331 1331 1626; Mul 1626 372 1274;
  Mul 1279 445 1218; Add 1626 1626 1279; Sub 1331 1331 1626; Sub 1331 1260 1331; Mul 1331 430 1331;
  Mul 1626 504 1331; Mul 1095 858 1095; Add 1626 1626 1095; Mul 1095 369 1274; Mul 1279 445 1214;
  Add 1095 1095 1279; Mul 1279 358 1266; Mul 1444 438 1211; Add 1279 1279 1444; Sub 1095 1095 1279;
  Sub 1095 1273 1095; Mul 1095 430 1095; Mul 1279 541 1095; Mul 1327 860 1327; Add 1279 1279 1327;
  Sub 1626 1626 1279; Add 1508 1508 1626; Mul 1626 860 1274; Mul 1279 445 1095; Add 1626 1626 1279;
  Mul 1279 856 1262; Mul 1327 434 1016; Add 1279 1279 1327; Sub 1626 1626 1279; Mul 1279 358 1272;
  Mul 1327 443 1211; Add 1279 1279 1327; Mul 1327 372 1257; Mul 1444 426 1218; Add 1327 1327 1444;
  Add 1279 1279 1327; Mul 1255 369 1255; Mul 1327 478 1214; Add 1255 1255 1327; Add 1279 1279 1255;
  Sub 1626 1626 1279; Mul 1279 508 1626; Mul 1306 859 1306; Add 1279 1279 1306; Mul 1306 856 1266;
  Mul 1255 438 1016; Add 1306 1306 1255; Mul 1274 858 1274; Mul 1255 445 1331; Add 1274 1274 1255;
  Sub 1306 1306 1274; Mul 1274 358 1424; Mul 1255 609 1211; Add 1274 1274 1255; Mul 1426 372 1426;
  Mul 1255 604 1218; Add 1426 1426 1255; Add 1274 1274 1426; Mul 1257 369 1257; Mul 1426 426 1214;
  Add 1257 1257 1426; Add 1274 1274 1257; Sub 1306 1306 1274; Mul 1274 536 1306].
Definition casadi_f0_77 : list instruction := [
  Mul 1324 862 1324; Add 1274 1274 1324; Sub 1279 1279 1274; Mul 1262 858 1262; Mul 1274 434 1331;
  Add 1262 1262 1274; Mul 1266 860 1266; Mul 1274 438 1095; Add 1266 1266 1274; Sub 1262 1262 1266;
  Mul 1266 13 1211; Mul 1441 358 1441; Sub 1266 1266 1441; Mul 1424 372 1424; Mul 1441 609 1218;
  Add 1424 1424 1441; Add 1266 1266 1424; Mul 1272 369 1272; Mul 1424 443 1214; Add 1272 1272 1424;
  Add 1266 1266 1272; Sub 1262 1262 1266; Mul 1266 526 1262; Mul 1093 863 1093; Add 1266 1266 1093;
  Sub 1279 1279 1266; Add 1508 1508 1279; Add 1553 1553 1601; Mul 1601 803 1218; Mul 1166 372 1166;
  Add 1601 1601 1166; Mul 1166 648 1214; Mul 1548 369 1548; Add 1166 1166 1548; Add 1601 1601 1166;
  Add 1553 1553 1601; Mul 1601 540 1553; Mul 1328 861 1328; Sub 1601 1601 1328; Mul 1328 394 1211;
  Mul 1282 358 1282; Add 1328 1328 1282; Add 1446 1446 1608; Mul 1608 669 1214; Mul 1584 369 1584;
  Add 1608 1608 1584; Add 1446 1446 1608; Add 1328 1328 1446; Mul 1446 544 1328; Mul 1332 865 1332;
  Add 1446 1446 1332; Add 1601 1601 1446; Mul 1446 801 1623; Mul 1109 736 1109; Add 1446 1446 1109;
  Add 1252 1252 1565; Mul 1565 355 1260; Mul 1578 738 1578; Add 1565 1565 1578; Add 1252 1252 1565;
  Add 1446 1446 1252; Mul 1252 359 1211; Mul 1270 358 1270; Add 1252 1252 1270; Add 1243 1243 1268;
  Mul 1268 608 1214; Mul 1432 369 1432; Add 1268 1268 1432; Add 1243 1243 1268; Add 1252 1252 1243;
  Sub 1446 1446 1252; Mul 1252 216 1446; Mul 1091 866 1091; Sub 1252 1252 1091; Add 1620 1620 1558;
  Mul 1558 457 1273; Mul 1580 741 1580; Add 1558 1558 1580; Mul 1580 234 1260; Mul 1241 738 1241;
  Add 1580 1580 1241; Add 1558 1558 1580; Add 1620 1620 1558; Add 1557 1557 1280; Mul 1280 352 1218;
  Mul 1425 372 1425; Add 1280 1280 1425; Mul 1425 622 1214; Mul 1498 369 1498; Add 1425 1425 1498;
  Add 1280 1280 1425; Add 1557 1557 1280; Sub 1620 1620 1557; Mul 1557 215 1620; Mul 1084 868 1084;
  Add 1557 1557 1084; Sub 1084 1252 1557; Add 1601 1601 1084; Add 1508 1508 1601; Mul 1508 1 1508;
  Mul 1017 857 1017; Add 1508 1508 1017; Add 1543 1543 1508; Mul 1508 678 1016; Mul 1155 856 1155;
  Add 1508 1508 1155; Mul 1155 673 1095; Mul 1585 860 1585; Add 1155 1155 1585; Mul 1585 799 1331;
  Mul 1121 858 1121; Add 1585 1585 1121; Add 1155 1155 1585; Add 1508 1508 1155; Mul 1155 602 1262;
  Mul 1340 863 1340; Add 1155 1155 1340; Mul 1340 670 1306; Mul 1552 862 1552; Add 1340 1340 1552;
  Mul 1552 671 1626; Mul 1512 859 1512; Add 1552 1552 1512; Sub 1340 1340 1552; Add 1155 1155 1340;
  Add 1508 1508 1155; Mul 1155 245 1211; Mul 1546 358 1546; Add 1155 1155 1546; Mul 1546 356 1218;
  Mul 1191 372 1191; Add 1546 1546 1191; Add 1333 1333 1610; Add 1546 1546 1333; Add 1155 1155 1546;
  Mul 1546 676 1155; Mul 1136 871 1136; Add 1546 1546 1136; Mul 1136 680 1328; Mul 1590 865 1590;
  Add 1136 1136 1590; Sub 1546 1546 1136; Mul 1136 674 1553; Mul 1587 861 1587; Sub 1136 1136 1587;
  Sub 1546 1546 1136; Sub 1557 1557 1252; Add 1546 1546 1557; Add 1508 1508 1546].
Definition casadi_f0_78 : list instruction := [
  Mul 1508 2 1508; Mul 1018 864 1018; Add 1508 1508 1018; Add 1543 1543 1508; Mul 1508 717 1016;
  Mul 1612 856 1612; Add 1508 1508 1612; Mul 1612 787 1331; Mul 1202 858 1202; Add 1612 1612 1202;
  Mul 1202 713 1095; Mul 1607 860 1607; Add 1202 1202 1607; Sub 1612 1612 1202; Add 1508 1508 1612;
  Mul 1612 677 1626; Mul 1112 859 1112; Add 1612 1612 1112; Mul 1112 712 1306; Mul 1560 862 1560;
  Add 1112 1112 1560; Sub 1612 1612 1112; Mul 1112 706 1262; Mul 1459 863 1459; Add 1112 1112 1459;
  Sub 1612 1612 1112; Add 1508 1508 1612; Mul 1612 714 1553; Mul 1611 861 1611; Add 1612 1612 1611;
  Mul 1611 718 1328; Mul 1186 865 1186; Add 1611 1611 1186; Mul 1186 716 1155; Mul 1181 871 1181;
  Add 1186 1186 1181; Sub 1611 1611 1186; Add 1612 1612 1611; Add 1612 1612 1084; Add 1508 1508 1612;
  Mul 1508 3 1508; Mul 1019 872 1019; Add 1508 1508 1019; Add 1543 1543 1508; Mul 1016 729 1016;
  Mul 1240 856 1240; Add 1016 1016 1240; Mul 1095 724 1095; Mul 1568 860 1568; Add 1095 1095 1568;
  Mul 1331 688 1331; Mul 1247 858 1247; Add 1331 1331 1247; Add 1095 1095 1331; Add 1016 1016 1095;
  Mul 1262 715 1262; Mul 1596 863 1596; Add 1262 1262 1596; Mul 1306 721 1306; Mul 1472 862 1472;
  Add 1306 1306 1472; Mul 1626 722 1626; Mul 1530 859 1530; Add 1626 1626 1530; Add 1306 1306 1626;
  Add 1262 1262 1306; Add 1016 1016 1262; Mul 1553 725 1553; Mul 1613 861 1613; Add 1553 1553 1613;
  Mul 1328 731 1328; Mul 1232 865 1232; Add 1328 1328 1232; Mul 1155 727 1155; Mul 1220 871 1220;
  Add 1155 1155 1220; Add 1328 1328 1155; Add 1553 1553 1328; Mul 1620 310 1620; Mul 1160 868 1160;
  Add 1620 1620 1160; Mul 1446 327 1446; Mul 1184 866 1184; Add 1446 1446 1184; Mul 1615 318 1615;
  Mul 1178 849 1178; Add 1615 1615 1178; Add 1446 1446 1615; Add 1620 1620 1446; Add 1553 1553 1620;
  Sub 1016 1016 1553; Mul 1016 4 1016; Mul 1020 869 1020; Add 1016 1016 1020; Add 1543 1543 1016;
  Mul 1623 820 1623; Mul 1281 736 1281; Add 1623 1623 1281; Mul 1273 822 1273; Mul 1621 741 1621;
  Add 1273 1273 1621; Mul 1260 788 1260; Mul 1249 738 1249; Add 1260 1260 1249; Add 1273 1273 1260;
  Add 1623 1623 1273; Mul 1211 817 1211; Mul 1614 358 1614; Add 1211 1211 1614; Mul 1218 814 1218;
  Mul 1569 372 1569; Add 1218 1218 1569; Mul 1214 732 1214; Mul 1385 369 1385; Add 1214 1214 1385;
  Add 1218 1218 1214; Add 1211 1211 1218; Sub 1623 1623 1211; Mul 1623 5 1623; Mul 1021 870 1021;
  Add 1623 1623 1021; Add 1543 1543 1623; Sub 1639 1639 1543; Mul 1543 754 1639; Add 1534 1534 1543;
  Add 1082 1082 1534; Mul 1534 210 1075; Mul 1543 200 1024; Add 1534 1534 1543; Mul 1028 19 1028;
  Mul 1543 196 1036; Sub 1028 1028 1543; Mul 1543 189 1035; Mul 1083 35 1083; Sub 1543 1543 1083;
  Sub 1028 1028 1543; Mul 1089 55 1089; Mul 1081 62 1081; Add 1089 1089 1081; Add 1028 1028 1089;
  Mul 1086 86 1086; Mul 1090 91 1090; Add 1086 1086 1090; Add 1086 1028 1086; Mul 1080 102 1080;
  Sub 1080 1086 1080; Mul 1090 777 1080; Mul 1089 209 1622; Add 1090 1090 1089].
Definition casadi_f0_79 : list instruction := [
  Add 1534 1534 1090; Mul 1090 778 1086; Mul 1089 867 1630; Add 1090 1090 1089; Add 1534 1534 1090;
  Mul 1090 769 1028; Mul 1089 855 1629; Add 1090 1090 1089; Add 1534 1534 1090; Mul 1090 761 1087;
  Mul 1089 201 1148; Add 1090 1090 1089; Sub 1534 1534 1090; Mul 1090 873 1397; Add 1534 1534 1090;
  Mul 1090 1006 1534; Mul 1089 210 1534; Mul 1081 756 1024; Add 1089 1089 1081; Sub 1075 1075 1089;
  Mul 1089 881 1075; Mul 1081 210 1074; Mul 1543 143 1024; Add 1081 1081 1543; Sub 1037 1037 1027;
  Sub 1040 1040 1046; Mul 1040 37 1040; Add 1037 1037 1040; Sub 1057 1057 1061; Mul 1057 80 1057;
  Add 1057 1037 1057; Sub 1049 1049 1064; Mul 1049 100 1049; Add 1049 1057 1049; Add 1064 60 60;
  Mul 1063 1064 1063; Add 1061 121 121; Mul 1033 1061 1033; Add 1063 1063 1033; Mul 1063 141 1063;
  Add 1049 1049 1063; Mul 1063 777 1049; Mul 1033 876 1622; Add 1063 1063 1033; Add 1081 1081 1063;
  Mul 1053 151 1053; Mul 1068 103 1068; Add 1053 1053 1068; Mul 1065 148 1065; Mul 1029 105 1029;
  Add 1065 1065 1029; Sub 1053 1053 1065; Sub 1053 1053 1057; Mul 1067 102 1067; Sub 1067 1053 1067;
  Mul 1057 778 1067; Mul 1065 153 1630; Add 1057 1057 1065; Sub 1081 1081 1057; Add 1057 88 88;
  Mul 1045 1057 1045; Add 1065 87 87; Mul 1056 1065 1056; Sub 1045 1045 1056; Mul 1045 156 1045;
  Add 1037 1037 1045; Mul 1032 86 1032; Mul 1038 91 1038; Sub 1032 1032 1038; Add 1032 1037 1032;
  Mul 1048 102 1048; Sub 1048 1032 1048; Mul 1038 769 1048; Mul 1045 171 1629; Add 1038 1038 1045;
  Add 1081 1081 1038; Mul 1035 180 1035; Mul 1047 35 1047; Add 1035 1035 1047; Mul 1042 19 1042;
  Mul 1036 182 1036; Sub 1042 1042 1036; Sub 1035 1035 1042; Mul 1078 55 1078; Add 1035 1035 1078;
  Mul 1077 86 1077; Mul 1030 91 1030; Add 1077 1077 1030; Add 1077 1035 1077; Mul 1079 102 1079;
  Sub 1079 1077 1079; Mul 1030 761 1079; Mul 1078 188 1148; Add 1030 1030 1078; Add 1081 1081 1030;
  Mul 1030 754 1080; Mul 1078 209 1397; Add 1030 1030 1078; Add 1081 1081 1030; Mul 1030 210 1081;
  Mul 1078 875 1024; Add 1030 1030 1078; Sub 1074 1074 1030; Div 1030 1074 65; Div 1078 881 65; Add 89 89 89;
  Mul 1074 89 1074; Add 58 58 58; Mul 1042 777 1081; Mul 1036 875 1622; Add 1042 1042 1036; Sub 1049 1049 1042;
  Mul 1042 58 1049; Add 1074 1074 1042; Add 45 45 45; Mul 1042 778 1081; Mul 1036 875 1630; Add 1042 1042 1036;
  Add 1042 1067 1042; Mul 1036 45 1042; Add 1074 1074 1036; Add 22 22 22; Mul 1036 769 1081; Mul 1047 875 1629;
  Add 1036 1036 1047; Sub 1036 1048 1036; Mul 1047 22 1036; Add 1074 1074 1047; Add 879 879 879;
  Mul 1047 761 1081; Mul 1038 875 1148; Add 1047 1047 1038; Sub 1047 1079 1047; Mul 1038 879 1047;
  Add 1074 1074 1038; Add 880 880 880; Mul 1038 754 1081; Mul 1045 875 1397; Add 1038 1038 1045;
  Sub 1038 1080 1038; Mul 1045 880 1038; Add 1074 1074 1045; Add 1045 65 65; Div 1074 1074 1045;
  Mul 1056 1078 1074; Sub 1030 1030 1056; Mul 1056 874 1030; Add 1089 1089 1056; Mul 1056 777 1534].
Definition casadi_f0_80 : list instruction := [
  Mul 1029 756 1622; Add 1056 1056 1029; Sub 1080 1080 1056; Mul 1056 884 1080; Div 1049 1049 65;
  Div 1029 884 65; Mul 1068 1029 1074; Sub 1049 1049 1068; Mul 1068 883 1049; Add 1056 1056 1068;
  Add 1089 1089 1056; Mul 1056 778 1534; Mul 1068 756 1630; Add 1056 1056 1068; Sub 1056 1056 1086;
  Mul 1068 886 1056; Div 1042 1042 65; Div 1063 886 65; Mul 1033 1063 1074; Sub 1042 1042 1033;
  Mul 1033 885 1042; Add 1068 1068 1033; Add 1089 1089 1068; Mul 1068 769 1534; Mul 1033 756 1629;
  Add 1068 1068 1033; Sub 1068 1028 1068; Mul 1033 888 1068; Div 1036 1036 65; Div 1040 888 65;
  Mul 1046 1040 1074; Sub 1036 1036 1046; Mul 1046 887 1036; Add 1033 1033 1046; Add 1089 1089 1033;
  Mul 1033 761 1534; Mul 1046 756 1148; Add 1033 1033 1046; Add 1033 1087 1033; Mul 1046 890 1033;
  Div 1047 1047 65; Div 1027 890 65; Mul 1543 1027 1074; Sub 1047 1047 1543; Mul 1543 889 1047;
  Add 1046 1046 1543; Sub 1089 1089 1046; Div 1038 1038 65; Div 1046 892 65; Mul 1543 1046 1074;
  Sub 1038 1038 1543; Mul 1543 891 1038; Mul 1534 754 1534; Mul 1083 756 1397; Add 1534 1534 1083;
  Mul 1083 892 1534; Sub 1543 1543 1083; Add 1089 1089 1543; Mul 1543 881 1089; Mul 1083 882 1030;
  Add 1543 1543 1083; Sub 1075 1075 1543; Mul 1543 884 1089; Mul 1083 882 1049; Add 1543 1543 1083;
  Sub 1080 1080 1543; Mul 1543 910 1080; Mul 1083 777 1067; Mul 1623 153 1622; Add 1083 1083 1623;
  Mul 1623 210 1055; Mul 1021 154 1024; Add 1623 1623 1021; Sub 1083 1083 1623; Mul 1623 778 1053;
  Mul 1021 106 1630; Add 1623 1623 1021; Add 1083 1083 1623; Mul 1623 769 1032; Mul 1021 877 1629;
  Add 1623 1623 1021; Sub 1083 1083 1623; Mul 1623 761 1077; Mul 1021 94 1148; Add 1623 1623 1021;
  Sub 1083 1083 1623; Mul 1623 754 1086; Mul 1021 867 1397; Add 1623 1623 1021; Sub 1083 1083 1623;
  Mul 1623 777 1083; Mul 1021 895 1622; Add 1623 1623 1021; Sub 1067 1067 1623; Mul 1623 884 1067;
  Mul 1021 896 1049; Add 1623 1623 1021; Mul 1021 210 1083; Mul 1211 895 1024; Add 1021 1021 1211;
  Add 1055 1055 1021; Mul 1021 881 1055; Mul 1211 898 1030; Add 1021 1021 1211; Sub 1623 1623 1021;
  Mul 1021 778 1083; Mul 1211 895 1630; Add 1021 1021 1211; Sub 1021 1021 1053; Mul 1053 886 1021;
  Mul 1211 899 1042; Add 1053 1053 1211; Add 1623 1623 1053; Mul 1053 769 1083; Mul 1211 895 1629;
  Add 1053 1053 1211; Add 1053 1032 1053; Mul 1211 888 1053; Mul 1218 900 1036; Add 1211 1211 1218;
  Sub 1623 1623 1211; Mul 1211 761 1083; Mul 1218 895 1148; Add 1211 1211 1218; Add 1211 1077 1211;
  Mul 1218 890 1211; Mul 1214 901 1047; Add 1218 1218 1214; Sub 1623 1623 1218; Mul 1218 754 1083;
  Mul 1214 895 1397; Add 1218 1218 1214; Add 1086 1086 1218; Mul 1218 892 1086; Mul 1214 902 1038;
  Add 1218 1218 1214; Sub 1623 1623 1218; Mul 1218 884 1623; Mul 1214 897 1049; Add 1218 1218 1214;
  Sub 1067 1067 1218; Div 1218 1067 905; Div 1214 910 905; Add 904 904 904; Mul 1385 881 1623;
  Mul 1569 897 1030; Add 1385 1385 1569; Add 1055 1055 1385; Mul 1385 904 1055].
Definition casadi_f0_81 : list instruction := [
  Add 903 903 903; Mul 1067 903 1067; Add 1385 1385 1067; Add 906 906 906; Mul 1067 886 1623; Mul 1569 897 1042;
  Add 1067 1067 1569; Sub 1021 1021 1067; Mul 1067 906 1021; Add 1385 1385 1067; Add 907 907 907;
  Mul 1067 888 1623; Mul 1569 897 1036; Add 1067 1067 1569; Add 1053 1053 1067; Mul 1067 907 1053;
  Add 1385 1385 1067; Add 908 908 908; Mul 1067 890 1623; Mul 1569 897 1047; Add 1067 1067 1569;
  Add 1211 1211 1067; Mul 1067 908 1211; Add 1385 1385 1067; Add 909 909 909; Mul 1067 892 1623;
  Mul 1569 897 1038; Add 1067 1067 1569; Add 1086 1086 1067; Mul 1067 909 1086; Add 1385 1385 1067;
  Add 1067 905 905; Div 1385 1385 1067; Mul 1569 1214 1385; Sub 1218 1218 1569; Mul 1569 894 1218;
  Add 1543 1543 1569; Mul 1569 912 1075; Div 1055 1055 905; Div 1614 912 905; Mul 1273 1614 1385;
  Sub 1055 1055 1273; Mul 1273 893 1055; Add 1569 1569 1273; Sub 1543 1543 1569; Mul 1569 886 1089;
  Mul 1273 882 1042; Add 1569 1569 1273; Sub 1056 1056 1569; Mul 1569 914 1056; Div 1021 1021 905;
  Div 1273 914 905; Mul 1260 1273 1385; Sub 1021 1021 1260; Mul 1260 913 1021; Add 1569 1569 1260;
  Add 1543 1543 1569; Mul 1569 888 1089; Mul 1260 882 1036; Add 1569 1569 1260; Sub 1068 1068 1569;
  Mul 1569 916 1068; Div 1053 1053 905; Div 1260 916 905; Mul 1249 1260 1385; Sub 1053 1053 1249;
  Mul 1249 915 1053; Add 1569 1569 1249; Sub 1543 1543 1569; Mul 1569 890 1089; Mul 1249 882 1047;
  Add 1569 1569 1249; Add 1033 1033 1569; Mul 1569 918 1033; Div 1211 1211 905; Div 1249 918 905;
  Mul 1621 1249 1385; Sub 1211 1211 1621; Mul 1621 917 1211; Add 1569 1569 1621; Add 1543 1543 1569;
  Div 1086 1086 905; Div 1569 920 905; Mul 1621 1569 1385; Sub 1086 1086 1621; Mul 1621 919 1086;
  Mul 1281 892 1089; Mul 1016 882 1038; Add 1281 1281 1016; Add 1534 1534 1281; Mul 1281 920 1534;
  Sub 1621 1621 1281; Sub 1543 1543 1621; Mul 1621 912 1543; Mul 1281 911 1055; Add 1621 1621 1281;
  Add 1075 1075 1621; Mul 1621 944 1075; Mul 1281 210 1060; Mul 1016 168 1024; Add 1281 1281 1016;
  Mul 1016 777 1048; Mul 1020 171 1622; Add 1016 1016 1020; Add 1281 1281 1016; Mul 1016 778 1032;
  Mul 1020 877 1630; Add 1016 1016 1020; Add 1281 1281 1016; Mul 1016 769 1037; Mul 1020 878 1629;
  Add 1016 1016 1020; Add 1281 1281 1016; Mul 1016 761 1035; Mul 1020 98 1148; Add 1016 1016 1020;
  Add 1281 1281 1016; Mul 1016 754 1028; Mul 1020 855 1397; Add 1016 1016 1020; Add 1281 1281 1016;
  Mul 1016 210 1281; Mul 1020 922 1024; Add 1016 1016 1020; Sub 1060 1060 1016; Mul 1016 881 1060;
  Mul 1020 923 1030; Add 1016 1016 1020; Mul 1020 777 1281; Mul 1553 922 1622; Add 1020 1020 1553;
  Sub 1048 1048 1020; Mul 1020 884 1048; Mul 1553 925 1049; Add 1020 1020 1553; Add 1016 1016 1020;
  Mul 1020 778 1281; Mul 1553 922 1630; Add 1020 1020 1553; Sub 1020 1020 1032; Mul 1032 886 1020;
  Mul 1553 926 1042; Add 1032 1032 1553; Add 1016 1016 1032; Mul 1032 769 1281; Mul 1553 922 1629;
  Add 1032 1032 1553; Sub 1037 1037 1032; Mul 1032 888 1037].
Definition casadi_f0_82 : list instruction := [
  Mul 1553 927 1036; Add 1032 1032 1553; Add 1016 1016 1032; Mul 1032 761 1281; Mul 1553 922 1148;
  Add 1032 1032 1553; Sub 1032 1035 1032; Mul 1553 890 1032; Mul 1620 928 1047; Add 1553 1553 1620;
  Add 1016 1016 1553; Mul 1553 754 1281; Mul 1620 922 1397; Add 1553 1553 1620; Sub 1028 1028 1553;
  Mul 1553 892 1028; Mul 1620 929 1038; Add 1553 1553 1620; Add 1016 1016 1553; Mul 1553 881 1016;
  Mul 1620 924 1030; Add 1553 1553 1620; Sub 1060 1060 1553; Mul 1553 884 1016; Mul 1620 924 1049;
  Add 1553 1553 1620; Sub 1048 1048 1553; Mul 1553 910 1048; Mul 1620 931 1218; Add 1553 1553 1620;
  Mul 1620 912 1060; Mul 1446 930 1055; Add 1620 1620 1446; Sub 1553 1553 1620; Mul 1620 886 1016;
  Mul 1446 924 1042; Add 1620 1620 1446; Sub 1020 1020 1620; Mul 1620 914 1020; Mul 1446 933 1021;
  Add 1620 1620 1446; Add 1553 1553 1620; Mul 1620 888 1016; Mul 1446 924 1036; Add 1620 1620 1446;
  Sub 1037 1037 1620; Mul 1620 916 1037; Mul 1446 934 1053; Add 1620 1620 1446; Sub 1553 1553 1620;
  Mul 1620 890 1016; Mul 1446 924 1047; Add 1620 1620 1446; Sub 1032 1032 1620; Mul 1620 918 1032;
  Mul 1446 935 1211; Add 1620 1620 1446; Sub 1553 1553 1620; Mul 1620 892 1016; Mul 1446 924 1038;
  Add 1620 1620 1446; Sub 1028 1028 1620; Mul 1620 920 1028; Mul 1446 936 1086; Add 1620 1620 1446;
  Sub 1553 1553 1620; Mul 1620 912 1553; Mul 1446 932 1055; Add 1620 1620 1446; Add 1060 1060 1620;
  Div 1620 1060 938; Div 1446 944 938; Add 937 937 937; Mul 1060 937 1060; Add 939 939 939; Mul 1615 910 1553;
  Mul 1178 932 1218; Add 1615 1615 1178; Sub 1048 1048 1615; Mul 1615 939 1048; Add 1060 1060 1615;
  Add 940 940 940; Mul 1615 914 1553; Mul 1178 932 1021; Add 1615 1615 1178; Sub 1020 1020 1615;
  Mul 1615 940 1020; Add 1060 1060 1615; Add 941 941 941; Mul 1615 916 1553; Mul 1178 932 1053;
  Add 1615 1615 1178; Add 1037 1037 1615; Mul 1615 941 1037; Add 1060 1060 1615; Add 942 942 942;
  Mul 1615 918 1553; Mul 1178 932 1211; Add 1615 1615 1178; Add 1032 1032 1615; Mul 1615 942 1032;
  Add 1060 1060 1615; Add 943 943 943; Mul 1615 920 1553; Mul 1178 932 1086; Add 1615 1615 1178;
  Add 1028 1028 1615; Mul 1615 943 1028; Add 1060 1060 1615; Add 1615 938 938; Div 1060 1060 1615;
  Mul 1178 1446 1060; Sub 1620 1620 1178; Mul 1178 921 1620; Add 1621 1621 1178; Mul 1178 910 1543;
  Mul 1184 911 1218; Add 1178 1178 1184; Sub 1080 1080 1178; Mul 1178 947 1080; Div 1048 1048 938;
  Div 1184 947 938; Mul 1160 1184 1060; Sub 1048 1048 1160; Mul 1160 946 1048; Add 1178 1178 1160;
  Add 1621 1621 1178; Mul 1178 914 1543; Mul 1160 911 1021; Add 1178 1178 1160; Sub 1056 1056 1178;
  Mul 1178 949 1056; Div 1020 1020 938; Div 1160 949 938; Mul 1328 1160 1060; Sub 1020 1020 1328;
  Mul 1328 948 1020; Add 1178 1178 1328; Add 1621 1621 1178; Mul 1178 916 1543; Mul 1328 911 1053;
  Add 1178 1178 1328; Add 1068 1068 1178; Mul 1178 951 1068; Div 1037 1037 938; Div 1328 951 938;
  Mul 1155 1328 1060; Sub 1037 1037 1155; Mul 1155 950 1037].
Definition casadi_f0_83 : list instruction := [
  Add 1178 1178 1155; Add 1621 1621 1178; Mul 1178 918 1543; Mul 1155 911 1211; Add 1178 1178 1155;
  Sub 1178 1178 1033; Mul 1033 953 1178; Div 1032 1032 938; Div 1155 953 938; Mul 1220 1155 1060;
  Sub 1032 1032 1220; Mul 1220 952 1032; Add 1033 1033 1220; Add 1621 1621 1033; Mul 1033 920 1543;
  Mul 1220 911 1086; Add 1033 1033 1220; Sub 1033 1033 1534; Mul 1534 955 1033; Div 1028 1028 938;
  Div 1220 955 938; Mul 1232 1220 1060; Sub 1028 1028 1232; Mul 1232 954 1028; Add 1534 1534 1232;
  Add 1621 1621 1534; Mul 1534 944 1621; Mul 1232 945 1620; Add 1534 1534 1232; Sub 1075 1075 1534;
  Mul 1534 986 1075; Mul 1232 210 1034; Mul 1613 175 1024; Add 1232 1232 1613; Mul 1613 777 1079;
  Mul 1262 188 1622; Add 1613 1613 1262; Add 1232 1232 1613; Mul 1613 778 1077; Mul 1262 94 1630;
  Add 1613 1613 1262; Add 1232 1232 1613; Mul 1613 769 1035; Mul 1262 98 1629; Add 1613 1613 1262;
  Add 1232 1232 1613; Mul 1613 761 1076; Mul 1262 172 1148; Add 1613 1613 1262; Sub 1232 1232 1613;
  Mul 1613 754 1087; Mul 1262 201 1397; Add 1613 1613 1262; Sub 1232 1232 1613; Mul 1613 210 1232;
  Mul 1024 957 1024; Add 1613 1613 1024; Sub 1034 1034 1613; Mul 1613 881 1034; Mul 1024 958 1030;
  Add 1613 1613 1024; Mul 1024 777 1232; Mul 1622 957 1622; Add 1024 1024 1622; Sub 1079 1079 1024;
  Mul 1024 884 1079; Mul 1622 960 1049; Add 1024 1024 1622; Add 1613 1613 1024; Mul 1024 778 1232;
  Mul 1630 957 1630; Add 1024 1024 1630; Sub 1024 1024 1077; Mul 1077 886 1024; Mul 1630 961 1042;
  Add 1077 1077 1630; Add 1613 1613 1077; Mul 1077 769 1232; Mul 1629 957 1629; Add 1077 1077 1629;
  Sub 1035 1035 1077; Mul 1077 888 1035; Mul 1629 962 1036; Add 1077 1077 1629; Add 1613 1613 1077;
  Mul 1077 761 1232; Mul 1148 957 1148; Add 1077 1077 1148; Add 1076 1076 1077; Mul 1077 890 1076;
  Mul 1148 963 1047; Add 1077 1077 1148; Sub 1613 1613 1077; Mul 1077 754 1232; Mul 1397 957 1397;
  Add 1077 1077 1397; Add 1087 1087 1077; Mul 1077 892 1087; Mul 1397 964 1038; Add 1077 1077 1397;
  Sub 1613 1613 1077; Mul 1077 881 1613; Mul 1397 959 1030; Add 1077 1077 1397; Sub 1034 1034 1077;
  Mul 1077 884 1613; Mul 1397 959 1049; Add 1077 1077 1397; Sub 1079 1079 1077; Mul 1077 910 1079;
  Mul 1397 966 1218; Add 1077 1077 1397; Mul 1397 912 1034; Mul 1148 965 1055; Add 1397 1397 1148;
  Sub 1077 1077 1397; Mul 1397 886 1613; Mul 1148 959 1042; Add 1397 1397 1148; Sub 1024 1024 1397;
  Mul 1397 914 1024; Mul 1148 968 1021; Add 1397 1397 1148; Add 1077 1077 1397; Mul 1397 888 1613;
  Mul 1148 959 1036; Add 1397 1397 1148; Sub 1035 1035 1397; Mul 1397 916 1035; Mul 1148 969 1053;
  Add 1397 1397 1148; Sub 1077 1077 1397; Mul 1397 890 1613; Mul 1148 959 1047; Add 1397 1397 1148;
  Add 1076 1076 1397; Mul 1397 918 1076; Mul 1148 970 1211; Add 1397 1397 1148; Add 1077 1077 1397;
  Mul 1397 892 1613; Mul 1148 959 1038; Add 1397 1397 1148; Add 1087 1087 1397; Mul 1397 920 1087;
  Mul 1148 971 1086; Add 1397 1397 1148; Add 1077 1077 1397; Mul 1397 912 1077].
Definition casadi_f0_84 : list instruction := [
  Mul 1148 967 1055; Add 1397 1397 1148; Add 1034 1034 1397; Mul 1397 944 1034; Mul 1148 972 1620;
  Add 1397 1397 1148; Mul 1148 910 1077; Mul 1629 967 1218; Add 1148 1148 1629; Sub 1079 1079 1148;
  Mul 1148 947 1079; Mul 1629 974 1048; Add 1148 1148 1629; Add 1397 1397 1148; Mul 1148 914 1077;
  Mul 1629 967 1021; Add 1148 1148 1629; Sub 1024 1024 1148; Mul 1148 949 1024; Mul 1629 975 1020;
  Add 1148 1148 1629; Add 1397 1397 1148; Mul 1148 916 1077; Mul 1629 967 1053; Add 1148 1148 1629;
  Add 1035 1035 1148; Mul 1148 951 1035; Mul 1629 976 1037; Add 1148 1148 1629; Add 1397 1397 1148;
  Mul 1148 918 1077; Mul 1629 967 1211; Add 1148 1148 1629; Sub 1148 1148 1076; Mul 1076 953 1148;
  Mul 1629 977 1032; Add 1076 1076 1629; Add 1397 1397 1076; Mul 1076 920 1077; Mul 1629 967 1086;
  Add 1076 1076 1629; Sub 1076 1076 1087; Mul 1087 955 1076; Mul 1629 978 1028; Add 1087 1087 1629;
  Add 1397 1397 1087; Mul 1087 944 1397; Mul 1629 973 1620; Add 1087 1087 1629; Sub 1034 1034 1087;
  Div 1087 1034 980; Div 1629 986 980; Add 979 979 979; Mul 1034 979 1034; Add 981 981 981; Mul 1630 947 1397;
  Mul 1622 973 1048; Add 1630 1630 1622; Sub 1079 1079 1630; Mul 1630 981 1079; Add 1034 1034 1630;
  Add 982 982 982; Mul 1630 949 1397; Mul 1622 973 1020; Add 1630 1630 1622; Sub 1024 1024 1630;
  Mul 1630 982 1024; Add 1034 1034 1630; Add 983 983 983; Mul 1630 951 1397; Mul 1622 973 1037;
  Add 1630 1630 1622; Sub 1035 1035 1630; Mul 1630 983 1035; Add 1034 1034 1630; Add 984 984 984;
  Mul 1630 953 1397; Mul 1622 973 1032; Add 1630 1630 1622; Sub 1148 1148 1630; Mul 1630 984 1148;
  Add 1034 1034 1630; Add 985 985 985; Mul 1630 955 1397; Mul 1622 973 1028; Add 1630 1630 1622;
  Sub 1076 1076 1630; Mul 1630 985 1076; Add 1034 1034 1630; Add 1630 980 980; Div 1034 1034 1630;
  Mul 1622 1629 1034; Sub 1087 1087 1622; Mul 1622 956 1087; Add 1534 1534 1622; Mul 1622 947 1621;
  Mul 1262 945 1048; Add 1622 1622 1262; Sub 1080 1080 1622; Mul 1622 989 1080; Div 1079 1079 980;
  Div 1262 989 980; Mul 1306 1262 1034; Sub 1079 1079 1306; Mul 1306 988 1079; Add 1622 1622 1306;
  Add 1534 1534 1622; Mul 1622 949 1621; Mul 1306 945 1020; Add 1622 1622 1306; Sub 1056 1056 1622;
  Mul 1622 991 1056; Div 1024 1024 980; Div 1306 991 980; Mul 1626 1306 1034; Sub 1024 1024 1626;
  Mul 1626 990 1024; Add 1622 1622 1626; Add 1534 1534 1622; Mul 1622 951 1621; Mul 1626 945 1037;
  Add 1622 1622 1626; Sub 1068 1068 1622; Mul 1622 993 1068; Div 1035 1035 980; Div 1626 993 980;
  Mul 1530 1626 1034; Sub 1035 1035 1530; Mul 1530 992 1035; Add 1622 1622 1530; Add 1534 1534 1622;
  Mul 1622 953 1621; Mul 1530 945 1032; Add 1622 1622 1530; Sub 1178 1178 1622; Mul 1622 995 1178;
  Div 1148 1148 980; Div 1530 995 980; Mul 1472 1530 1034; Sub 1148 1148 1472; Mul 1472 994 1148;
  Add 1622 1622 1472; Add 1534 1534 1622; Mul 1622 955 1621; Mul 1472 945 1028; Add 1622 1622 1472;
  Sub 1033 1033 1622; Mul 1622 997 1033; Div 1076 1076 980].
Definition casadi_f0_85 : list instruction := [
  Div 1472 997 980; Mul 1596 1472 1034; Sub 1076 1076 1596; Mul 1596 996 1076; Add 1622 1622 1596;
  Add 1534 1534 1622; Mul 1622 986 1534; Mul 1596 987 1087; Add 1622 1622 1596; Sub 1075 1075 1622;
  Div 1622 1075 999; Div 1596 1005 999; Add 998 998 998; Mul 1075 998 1075; Add 1000 1000 1000;
  Mul 1095 989 1534; Mul 1331 987 1079; Add 1095 1095 1331; Sub 1080 1080 1095; Mul 1095 1000 1080;
  Add 1075 1075 1095; Add 1001 1001 1001; Mul 1095 991 1534; Mul 1331 987 1024; Add 1095 1095 1331;
  Sub 1056 1056 1095; Mul 1095 1001 1056; Add 1075 1075 1095; Add 1002 1002 1002; Mul 1095 993 1534;
  Mul 1331 987 1035; Add 1095 1095 1331; Sub 1068 1068 1095; Mul 1095 1002 1068; Add 1075 1075 1095;
  Add 1003 1003 1003; Mul 1095 995 1534; Mul 1331 987 1148; Add 1095 1095 1331; Sub 1178 1178 1095;
  Mul 1095 1003 1178; Add 1075 1075 1095; Add 1004 1004 1004; Mul 1095 997 1534; Mul 1331 987 1076;
  Add 1095 1095 1331; Sub 1033 1033 1095; Mul 1095 1004 1033; Add 1075 1075 1095; Add 1095 999 999;
  Div 1075 1075 1095; Mul 1331 1596 1075; Sub 1622 1622 1331; Mul 1622 211 1622; Mul 1331 1005 1098;
  Sub 1622 1622 1331; Div 1080 1080 999; Div 1331 1007 999; Mul 1247 1331 1075; Sub 1080 1080 1247;
  Mul 1080 779 1080; Mul 1247 1007 1349; Sub 1080 1080 1247; Add 1622 1622 1080; Div 1056 1056 999;
  Div 1080 1008 999; Mul 1247 1080 1075; Sub 1056 1056 1247; Mul 1056 767 1056; Mul 1247 1008 1632;
  Add 1056 1056 1247; Add 1622 1622 1056; Div 1068 1068 999; Div 1056 1009 999; Mul 1247 1056 1075;
  Sub 1068 1068 1247; Mul 1068 775 1068; Mul 1247 1009 1521; Sub 1068 1068 1247; Add 1622 1622 1068;
  Div 1178 1178 999; Div 1068 1010 999; Mul 1247 1068 1075; Sub 1178 1178 1247; Mul 1178 815 1178;
  Mul 1247 1010 1638; Add 1178 1178 1247; Add 1622 1622 1178; Div 1033 1033 999; Div 1178 1011 999;
  Mul 1247 1178 1075; Sub 1033 1033 1247; Mul 1033 833 1033; Mul 1247 1011 1639; Add 1033 1033 1247;
  Add 1622 1622 1033; Div 1622 1622 999; Div 1033 1006 999; Mul 1075 1033 1075; Sub 1622 1622 1075;
  Mul 1075 756 1622; Add 1090 1090 1075; Sub 1082 1082 1090; Mul 1232 1012 1232; Mul 1087 211 1087;
  Mul 1090 986 1098; Sub 1087 1087 1090; Mul 1079 779 1079; Mul 1090 989 1349; Sub 1079 1079 1090;
  Add 1087 1087 1079; Mul 1024 767 1024; Mul 1079 991 1632; Add 1024 1024 1079; Add 1087 1087 1024;
  Mul 1035 775 1035; Mul 1024 993 1521; Sub 1035 1035 1024; Add 1087 1087 1035; Mul 1148 815 1148;
  Mul 1035 995 1638; Add 1148 1148 1035; Add 1087 1087 1148; Mul 1076 833 1076; Mul 1148 997 1639;
  Add 1076 1076 1148; Add 1087 1087 1076; Mul 1534 1006 1534; Mul 1076 987 1622; Add 1534 1534 1076;
  Sub 1087 1087 1534; Div 1087 1087 980; Div 1534 1012 980; Mul 1034 1534 1034; Sub 1087 1087 1034;
  Mul 1034 957 1087; Add 1232 1232 1034; Sub 1082 1082 1232; Mul 1281 1013 1281; Mul 1620 211 1620;
  Mul 1232 944 1098; Sub 1620 1620 1232; Mul 1048 779 1048; Mul 1232 947 1349; Sub 1048 1048 1232;
  Add 1620 1620 1048; Mul 1020 767 1020; Mul 1048 949 1632; Add 1020 1020 1048].
Definition casadi_f0_86 : list instruction := [
  Add 1620 1620 1020; Mul 1037 775 1037; Mul 1020 951 1521; Sub 1037 1037 1020; Add 1620 1620 1037;
  Mul 1032 815 1032; Mul 1037 953 1638; Add 1032 1032 1037; Add 1620 1620 1032; Mul 1028 833 1028;
  Mul 1032 955 1639; Add 1028 1028 1032; Add 1620 1620 1028; Mul 1621 1006 1621; Mul 1028 945 1622;
  Add 1621 1621 1028; Sub 1620 1620 1621; Mul 1397 1012 1397; Mul 1621 973 1087; Add 1397 1397 1621;
  Sub 1620 1620 1397; Div 1620 1620 938; Div 1397 1013 938; Mul 1060 1397 1060; Sub 1620 1620 1060;
  Mul 1060 922 1620; Add 1281 1281 1060; Sub 1082 1082 1281; Mul 1083 1014 1083; Mul 1218 779 1218;
  Mul 1281 910 1349; Sub 1218 1218 1281; Mul 1055 211 1055; Mul 1281 912 1098; Sub 1055 1055 1281;
  Sub 1218 1218 1055; Mul 1021 767 1021; Mul 1055 914 1632; Add 1021 1021 1055; Add 1218 1218 1021;
  Mul 1053 775 1053; Mul 1021 916 1521; Sub 1053 1053 1021; Sub 1218 1218 1053; Mul 1211 815 1211;
  Mul 1053 918 1638; Add 1211 1211 1053; Sub 1218 1218 1211; Mul 1086 833 1086; Mul 1211 920 1639;
  Add 1086 1086 1211; Sub 1218 1218 1086; Mul 1543 1006 1543; Mul 1086 911 1622; Add 1543 1543 1086;
  Sub 1218 1218 1543; Mul 1077 1012 1077; Mul 1543 967 1087; Add 1077 1077 1543; Sub 1218 1218 1077;
  Mul 1553 1013 1553; Mul 1077 932 1620; Add 1553 1553 1077; Sub 1218 1218 1553; Div 1218 1218 905;
  Div 1553 1014 905; Mul 1385 1553 1385; Sub 1218 1218 1385; Mul 1385 895 1218; Add 1083 1083 1385;
  Sub 1082 1082 1083; Mul 1081 1015 1081; Mul 1030 211 1030; Mul 1098 881 1098; Sub 1030 1030 1098;
  Mul 1049 779 1049; Mul 1349 884 1349; Sub 1049 1049 1349; Add 1030 1030 1049; Mul 1042 767 1042;
  Mul 1632 886 1632; Add 1042 1042 1632; Add 1030 1030 1042; Mul 1036 775 1036; Mul 1521 888 1521;
  Sub 1036 1036 1521; Add 1030 1030 1036; Mul 1047 815 1047; Mul 1638 890 1638; Add 1047 1047 1638;
  Add 1030 1030 1047; Mul 1038 833 1038; Mul 1639 892 1639; Add 1038 1038 1639; Add 1030 1030 1038;
  Mul 1089 1006 1089; Mul 1038 882 1622; Add 1089 1089 1038; Sub 1030 1030 1089; Mul 1613 1012 1613;
  Mul 1089 959 1087; Add 1613 1613 1089; Sub 1030 1030 1613; Mul 1016 1013 1016; Mul 1613 924 1620;
  Add 1016 1016 1613; Sub 1030 1030 1016; Mul 1623 1014 1623; Mul 1016 897 1218; Add 1623 1623 1016;
  Sub 1030 1030 1623; Div 1030 1030 65; Div 1623 1015 65; Mul 1074 1623 1074; Sub 1030 1030 1074;
  Mul 1074 875 1030; Add 1081 1081 1074; Sub 1082 1082 1081; Div 1082 1082 92; Div 759 759 92;
  Mul 1062 759 1062; Sub 1082 1082 1062; Out 1 6 1082; Out 1 7 1030; Out 1 8 1218; Out 1 9 1620; Out 1 10 1087;
  Out 1 11 1622; Arg 1622 1 18; Out 1 12 1622; Arg 1087 1 19; Out 1 13 1087; Arg 1620 1 20; Out 1 14 1620;
  Arg 1218 1 21; Out 1 15 1218; Arg 1030 1 22; Out 1 16 1030; Arg 1082 1 23; Out 1 17 1082; Arg 1062 1 14;
  Mul 1081 8 1062; Mul 1074 10 1081; Arg 1016 1 17; Mul 1613 16 1016; Mul 1089 21 1613; Mul 1016 15 1016;
  Mul 1038 18 1016; Mul 1639 14 1613].
Definition casadi_f0_87 : list instruction := [
  Add 1038 1038 1639; Mul 1639 15 1038; Sub 1089 1089 1639; Mul 1639 18 1613; Mul 1047 14 1016;
  Sub 1639 1639 1047; Mul 1639 16 1639; Mul 1047 17 1016; Sub 1639 1639 1047; Sub 1047 1089 1639;
  Mul 1638 28 1016; Mul 1036 26 1613; Add 1638 1638 1036; Mul 1036 1031 1638; Mul 1521 28 1613;
  Mul 1042 26 1016; Sub 1521 1521 1042; Mul 1042 29 1521; Sub 1632 1036 1042; Mul 1632 20 1632;
  Add 1047 1047 1632; Mul 1042 20 1042; Add 1089 1089 1042; Add 1047 1047 1089; Mul 1036 20 1036;
  Add 1639 1639 1036; Add 1639 1639 1089; Add 1036 1047 1639; Mul 1639 19 1639; Arg 1042 1 16; Mul 1632 35 1042;
  Mul 1049 30 1632; Sub 1639 1639 1049; Mul 1042 19 1042; Mul 1049 41 1042; Mul 1349 42 1613; Mul 1098 40 1016;
  Sub 1349 1349 1098; Mul 1098 43 1613; Sub 1349 1349 1098; Mul 1098 44 1521; Add 1349 1349 1098;
  Mul 1098 35 1349; Add 1049 1049 1098; Sub 1639 1639 1049; Mul 1049 19 1639; Mul 1098 38 1632;
  Sub 1049 1049 1098; Mul 1349 19 1349; Mul 1098 41 1632; Sub 1349 1349 1098; Mul 1098 12 1042;
  Mul 1047 35 1047; Add 1098 1098 1047; Sub 1349 1349 1098; Mul 1098 35 1349; Mul 1047 46 1042;
  Add 1098 1098 1047; Sub 1049 1049 1098; Sub 1036 1036 1049; Sub 1036 1036 1089; Mul 1098 50 1638;
  Mul 1047 1039 1098; Mul 1083 50 1521; Mul 1385 19 1083; Mul 1077 49 1632; Sub 1385 1385 1077;
  Mul 1077 51 1042; Sub 1385 1385 1077; Mul 1077 1041 1385; Sub 1543 1047 1077; Mul 1543 37 1543;
  Add 1036 1036 1543; Mul 1543 49 1042; Mul 1086 35 1083; Add 1543 1543 1086; Mul 1086 51 1632;
  Sub 1543 1543 1086; Mul 1086 64 1543; Add 1077 1086 1077; Mul 1077 37 1077; Add 1077 1089 1077;
  Add 1036 1036 1077; Mul 1211 43 1016; Mul 1053 42 1016; Mul 1021 40 1613; Add 1053 1053 1021;
  Sub 1211 1211 1053; Mul 1053 44 1638; Sub 1211 1211 1053; Mul 1053 67 1211; Mul 1021 19 1053;
  Mul 1055 71 1632; Sub 1021 1021 1055; Mul 1055 75 1042; Mul 1038 16 1038; Mul 1281 21 1016;
  Add 1038 1038 1281; Mul 1638 74 1638; Mul 1521 20 1521; Mul 1521 34 1521; Sub 1638 1638 1521;
  Add 1038 1038 1638; Add 1638 1038 1038; Mul 1521 35 1638; Sub 1055 1055 1521; Add 1021 1021 1055;
  Mul 1055 73 1042; Mul 1521 35 1038; Sub 1055 1055 1521; Mul 1521 19 1211; Mul 1281 70 1632;
  Sub 1521 1521 1281; Add 1055 1055 1521; Sub 1021 1021 1055; Mul 1055 76 1098; Mul 1521 37 1543;
  Mul 1281 57 1521; Sub 1055 1055 1281; Sub 1021 1021 1055; Mul 1055 67 1021; Mul 1055 66 1055; Arg 1281 1 15;
  Mul 1060 53 1281; Mul 1621 77 1060; Sub 1055 1055 1621; Mul 1281 66 1281; Mul 1621 11 1281; Mul 1028 53 1036;
  Add 1621 1621 1028; Sub 1055 1055 1621; Mul 1621 53 1055; Mul 1028 78 1281; Add 1621 1621 1028;
  Add 1036 1036 1621; Sub 1036 1036 1077; Mul 1028 87 1060; Mul 1032 83 1098; Mul 1037 66 1032;
  Add 1028 1028 1037; Mul 1037 88 1281; Mul 1543 83 1543; Mul 1020 53 1543; Add 1037 1037 1020;
  Add 1028 1028 1037; Mul 1037 1054 1028; Mul 1020 83 1385; Mul 1048 1058 1020; Sub 1232 1037 1048].
Definition casadi_f0_88 : list instruction := [
  Mul 1232 80 1232; Add 1036 1036 1232; Add 1077 1077 1621; Mul 1621 66 1543; Mul 1232 88 1060;
  Sub 1621 1621 1232; Mul 1232 87 1281; Mul 1034 53 1032; Sub 1232 1232 1034; Add 1621 1621 1232;
  Mul 1232 93 1621; Add 1048 1232 1048; Mul 1048 80 1048; Add 1077 1077 1048; Add 1036 1036 1077;
  Mul 1048 9 1036; Add 1074 1074 1048; Mul 1055 66 1055; Mul 1048 78 1060; Sub 1055 1055 1048;
  Sub 1055 1055 1021; Mul 1021 72 1028; Mul 1048 80 1621; Mul 1034 63 1048; Sub 1021 1021 1034;
  Sub 1055 1055 1021; Mul 1021 67 1055; Mul 1021 8 1021; Mul 1062 9 1062; Mul 1034 97 1062; Sub 1021 1021 1034;
  Add 1074 1074 1021; Mul 1021 9 1074; Mul 1034 84 1081; Add 1021 1021 1034; Sub 1034 1021 1077;
  Mul 1621 104 1621; Mul 1076 8 1621; Mul 1148 103 1062; Sub 1076 1076 1148; Mul 1148 105 1081;
  Mul 1035 104 1028; Mul 1024 9 1035; Sub 1148 1148 1024; Sub 1076 1076 1148; Mul 1148 33 1076;
  Mul 1024 104 1020; Mul 1079 1066 1024; Add 1090 1148 1079; Mul 1090 100 1090; Sub 1034 1034 1090;
  Mul 1074 8 1074; Mul 1090 84 1062; Sub 1074 1074 1090; Sub 1074 1074 1055; Mul 1055 103 1081; Mul 1090 9 1621;
  Add 1055 1055 1090; Mul 1090 105 1062; Mul 1075 8 1035; Add 1090 1090 1075; Sub 1055 1055 1090;
  Mul 1090 96 1055; Mul 1075 100 1076; Mul 1247 117 1075; Sub 1090 1090 1247; Add 1074 1074 1090;
  Mul 1074 67 1074; Mul 1074 114 1074; Arg 1090 1 13; Mul 1247 113 1090; Mul 1568 116 1247; Sub 1074 1074 1568;
  Mul 1090 114 1090; Mul 1568 119 1090; Sub 1036 1036 1021; Sub 1036 1036 1077; Mul 1077 1044 1055;
  Sub 1079 1077 1079; Mul 1079 100 1079; Add 1036 1036 1079; Sub 1036 1036 1034; Mul 1036 113 1036;
  Add 1568 1568 1036; Sub 1074 1074 1568; Mul 1074 113 1074; Mul 1568 118 1090; Add 1074 1074 1568;
  Sub 1034 1034 1074; Mul 1076 120 1076; Mul 1074 114 1076; Mul 1568 60 1247; Sub 1074 1074 1568;
  Mul 1568 121 1090; Mul 1036 120 1055; Mul 1079 113 1036; Add 1568 1568 1079; Add 1074 1074 1568;
  Mul 1568 112 1074; Mul 1079 120 1024; Mul 1021 123 1079; Add 1568 1568 1021; Mul 1568 99 1568;
  Sub 1034 1034 1568; Mul 1074 125 1074; Mul 1074 110 1074; Mul 1568 125 1079; Mul 1568 126 1568;
  Add 1074 1074 1568; Mul 1074 122 1074; Add 1034 1034 1074; Div 1074 1034 92; Mul 1034 6 1034;
  Mul 1568 130 1081; Mul 1349 19 1349; Mul 1021 46 1632; Sub 1349 1349 1021; Mul 1639 35 1639; Mul 1021 38 1042;
  Add 1639 1639 1021; Add 1349 1349 1639; Mul 1521 52 1521; Mul 1639 76 1385; Add 1521 1521 1639;
  Add 1349 1349 1521; Mul 1521 66 1349; Mul 1639 129 1060; Sub 1521 1521 1639; Mul 1639 132 1281;
  Mul 1021 70 1042; Mul 1240 35 1211; Add 1021 1021 1240; Mul 1240 73 1632; Mul 1508 19 1038;
  Add 1240 1240 1508; Add 1021 1021 1240; Mul 1638 19 1638; Mul 1240 75 1632; Add 1638 1638 1240;
  Mul 1053 35 1053; Mul 1240 71 1042; Add 1053 1053 1240; Add 1638 1638 1053; Sub 1021 1021 1638;
  Mul 1638 133 1098; Mul 1385 37 1385; Mul 1385 57 1385; Sub 1638 1638 1385; Sub 1021 1021 1638].
Definition casadi_f0_89 : list instruction := [
  Mul 1638 53 1021; Add 1639 1639 1638; Add 1521 1521 1639; Mul 1048 27 1048; Mul 1639 72 1020;
  Add 1048 1048 1639; Add 1521 1521 1048; Mul 1048 9 1521; Add 1568 1568 1048; Add 1048 1021 1021;
  Mul 1048 66 1048; Mul 1639 136 1060; Sub 1048 1048 1639; Mul 1639 129 1281; Mul 1638 53 1349;
  Add 1639 1639 1638; Sub 1048 1048 1639; Mul 1639 66 1021; Mul 1638 132 1060; Sub 1639 1639 1638;
  Sub 1048 1048 1639; Mul 1028 138 1028; Mul 1639 80 1020; Mul 1639 63 1639; Sub 1028 1028 1639;
  Sub 1048 1048 1028; Add 1028 1048 1048; Mul 1028 8 1028; Mul 1639 139 1062; Sub 1028 1028 1639;
  Add 1568 1568 1028; Mul 1028 8 1048; Mul 1639 137 1062; Sub 1028 1028 1639; Sub 1568 1568 1028;
  Mul 1055 140 1055; Mul 1028 100 1024; Mul 1028 117 1028; Sub 1055 1055 1028; Add 1568 1568 1055;
  Mul 1055 141 1079; Mul 1055 121 1055; Mul 1028 142 1036; Add 1055 1055 1028; Sub 1568 1568 1055;
  Mul 1568 114 1568; Mul 1055 134 1247; Sub 1568 1568 1055; Mul 1055 145 1090; Mul 1028 8 1521;
  Mul 1639 130 1062; Sub 1028 1028 1639; Mul 1639 137 1081; Mul 1638 9 1048; Add 1639 1639 1638;
  Sub 1028 1028 1639; Mul 1075 111 1075; Mul 1639 96 1024; Add 1075 1075 1639; Add 1028 1028 1075;
  Mul 1075 141 1076; Mul 1075 124 1075; Mul 1079 146 1079; Add 1075 1075 1079; Sub 1028 1028 1075;
  Mul 1028 113 1028; Add 1055 1055 1028; Sub 1568 1568 1055; Mul 1055 1073 1568; Add 1034 1034 1055;
  Mul 1055 150 1090; Mul 1028 149 1081; Mul 1075 148 1024; Mul 1079 147 1035; Mul 1639 109 1079;
  Sub 1075 1075 1639; Add 1048 1048 1075; Mul 1075 9 1048; Add 1028 1028 1075; Mul 1024 151 1024;
  Mul 1075 147 1621; Mul 1639 109 1075; Add 1024 1024 1639; Add 1521 1521 1024; Mul 1024 8 1521;
  Mul 1639 152 1062; Sub 1024 1024 1639; Sub 1028 1028 1024; Mul 1024 148 1081; Mul 1639 9 1079;
  Sub 1024 1024 1639; Mul 1639 8 1075; Mul 1638 151 1062; Sub 1639 1639 1638; Sub 1024 1024 1639;
  Mul 1639 108 1024; Add 1028 1028 1639; Mul 1028 113 1028; Add 1055 1055 1028; Mul 1028 152 1081;
  Mul 1521 9 1521; Add 1028 1028 1521; Mul 1048 8 1048; Mul 1521 149 1062; Sub 1048 1048 1521;
  Add 1028 1028 1048; Mul 1048 151 1081; Mul 1521 9 1075; Add 1048 1048 1521; Mul 1521 148 1062;
  Mul 1639 8 1079; Add 1521 1521 1639; Sub 1048 1048 1521; Mul 1048 108 1048; Add 1028 1028 1048;
  Mul 1028 114 1028; Mul 1048 155 1247; Sub 1028 1028 1048; Add 1055 1055 1028; Mul 1028 1050 1055;
  Add 1034 1034 1028; Mul 1028 159 1081; Mul 1048 156 1543; Mul 1048 82 1048; Mul 1521 157 1020;
  Add 1048 1048 1521; Sub 1349 1349 1048; Mul 1048 66 1349; Mul 1521 158 1060; Sub 1048 1048 1521;
  Mul 1521 161 1281; Mul 1020 156 1020; Mul 1020 87 1020; Mul 1639 160 1032; Sub 1020 1020 1639;
  Sub 1021 1021 1020; Mul 1020 53 1021; Add 1521 1521 1020; Add 1048 1048 1521; Mul 1521 9 1048;
  Add 1028 1028 1521; Mul 1021 66 1021; Mul 1521 161 1060; Sub 1021 1021 1521; Mul 1521 158 1281;
  Mul 1349 53 1349; Add 1521 1521 1349; Sub 1021 1021 1521; Mul 1521 8 1021].
Definition casadi_f0_90 : list instruction := [
  Mul 1349 163 1062; Sub 1521 1521 1349; Add 1028 1028 1521; Mul 1521 167 1281; Mul 1349 166 1543;
  Mul 1020 53 1349; Add 1521 1521 1020; Mul 1020 164 1060; Mul 1639 156 1032; Mul 1638 66 1639;
  Add 1020 1020 1638; Sub 1521 1521 1020; Mul 1020 8 1521; Mul 1638 165 1062; Sub 1020 1020 1638;
  Mul 1638 169 1081; Mul 1349 66 1349; Mul 1385 167 1060; Sub 1349 1349 1385; Mul 1385 164 1281;
  Mul 1639 53 1639; Sub 1385 1385 1639; Sub 1349 1349 1385; Mul 1385 9 1349; Add 1638 1638 1385;
  Sub 1020 1020 1638; Mul 1020 108 1020; Sub 1028 1028 1020; Mul 1028 114 1028; Mul 1020 162 1247;
  Sub 1028 1028 1020; Mul 1020 170 1090; Mul 1048 8 1048; Mul 1638 159 1062; Sub 1048 1048 1638;
  Mul 1638 163 1081; Mul 1021 9 1021; Add 1638 1638 1021; Sub 1048 1048 1638; Mul 1638 165 1081;
  Mul 1021 9 1521; Add 1638 1638 1021; Mul 1021 8 1349; Mul 1385 169 1062; Sub 1021 1021 1385;
  Add 1638 1638 1021; Mul 1021 108 1638; Add 1048 1048 1021; Mul 1048 113 1048; Add 1020 1020 1048;
  Sub 1028 1028 1020; Mul 1020 1070 1028; Add 1034 1034 1020; Mul 1020 179 1081; Mul 1048 177 1281;
  Mul 1021 174 1083; Mul 1083 173 1083; Mul 1385 49 1083; Add 1021 1021 1385; Add 1021 1021 1089;
  Mul 1385 174 1042; Mul 1639 35 1083; Add 1385 1385 1639; Mul 1639 176 1632; Sub 1385 1385 1639;
  Mul 1639 62 1385; Mul 1053 176 1042; Mul 1240 19 1083; Mul 1508 174 1632; Sub 1240 1240 1508;
  Sub 1053 1053 1240; Mul 1240 48 1053; Sub 1639 1639 1240; Add 1639 1021 1639; Mul 1240 53 1639;
  Add 1048 1048 1240; Mul 1240 176 1098; Sub 1211 1211 1240; Mul 1240 19 1211; Mul 1508 180 1632;
  Sub 1240 1240 1508; Mul 1508 182 1042; Mul 1083 56 1083; Mul 1098 174 1098; Sub 1083 1083 1098;
  Sub 1083 1083 1038; Mul 1038 35 1083; Add 1508 1508 1038; Add 1240 1240 1508; Mul 1508 55 1385;
  Add 1240 1240 1508; Mul 1508 66 1240; Mul 1038 181 1060; Sub 1508 1508 1038; Sub 1048 1048 1508;
  Mul 1508 86 1385; Sub 1048 1048 1508; Mul 1508 9 1048; Add 1020 1020 1508; Mul 1508 181 1281;
  Mul 1240 53 1240; Add 1508 1508 1240; Mul 1639 66 1639; Mul 1240 177 1060; Sub 1639 1639 1240;
  Add 1508 1508 1639; Mul 1639 91 1385; Add 1508 1508 1639; Mul 1639 8 1508; Mul 1240 184 1062;
  Sub 1639 1639 1240; Add 1020 1020 1639; Mul 1385 102 1385; Mul 1639 66 1053; Mul 1240 178 1060;
  Sub 1639 1639 1240; Mul 1240 8 1639; Mul 1038 185 1062; Sub 1240 1240 1038; Mul 1038 187 1081;
  Mul 1098 178 1281; Mul 1019 53 1053; Add 1098 1098 1019; Mul 1019 9 1098; Add 1038 1038 1019;
  Add 1240 1240 1038; Mul 1240 108 1240; Sub 1385 1385 1240; Add 1020 1020 1385; Mul 1020 114 1020;
  Mul 1385 183 1247; Sub 1020 1020 1385; Mul 1385 186 1090; Mul 1048 8 1048; Mul 1240 179 1062;
  Sub 1048 1048 1240; Mul 1240 184 1081; Mul 1508 9 1508; Add 1240 1240 1508; Sub 1048 1048 1240;
  Mul 1240 185 1081; Mul 1508 9 1639; Add 1240 1240 1508; Mul 1508 8 1098; Mul 1038 187 1062;
  Sub 1508 1508 1038; Sub 1240 1240 1508; Mul 1508 108 1240; Add 1048 1048 1508].
Definition casadi_f0_91 : list instruction := [
  Mul 1048 113 1048; Add 1385 1385 1048; Sub 1020 1020 1385; Mul 1385 1059 1020; Add 1034 1034 1385;
  Mul 1385 199 1081; Mul 1048 196 1042; Mul 1508 197 1613; Mul 1038 195 1016; Sub 1508 1508 1038;
  Mul 1038 190 1016; Mul 1019 192 1613; Add 1038 1038 1019; Mul 1019 198 1038; Add 1508 1508 1019;
  Mul 1019 35 1508; Add 1048 1048 1019; Mul 1019 189 1632; Mul 1612 25 1038; Mul 1084 190 1613;
  Mul 1611 192 1016; Sub 1084 1084 1611; Mul 1611 32 1084; Add 1612 1612 1611; Mul 1611 19 1612;
  Add 1019 1019 1611; Sub 1048 1048 1019; Mul 1019 48 1038; Mul 1611 19 1084; Mul 1186 194 1632;
  Sub 1611 1611 1186; Mul 1186 55 1611; Add 1019 1019 1186; Sub 1048 1048 1019; Mul 1019 66 1048;
  Mul 1186 193 1060; Sub 1019 1019 1186; Mul 1186 202 1281; Mul 1181 198 1084; Mul 1112 197 1016;
  Mul 1459 195 1613; Add 1112 1112 1459; Sub 1181 1181 1112; Mul 1112 62 1611; Mul 1459 194 1042;
  Mul 1084 35 1084; Add 1459 1459 1084; Mul 1084 48 1459; Sub 1112 1112 1084; Add 1112 1181 1112;
  Mul 1084 53 1112; Add 1186 1186 1084; Add 1019 1019 1186; Mul 1186 86 1611; Sub 1019 1019 1186;
  Mul 1186 9 1019; Add 1385 1385 1186; Mul 1112 66 1112; Mul 1186 202 1060; Sub 1112 1112 1186;
  Mul 1186 193 1281; Mul 1048 53 1048; Add 1186 1186 1048; Sub 1112 1112 1186; Mul 1186 91 1611;
  Add 1112 1112 1186; Mul 1186 8 1112; Mul 1048 205 1062; Sub 1186 1186 1048; Add 1385 1385 1186;
  Mul 1611 102 1611; Mul 1186 66 1459; Mul 1048 203 1060; Sub 1186 1186 1048; Mul 1048 191 1281;
  Mul 1084 53 1038; Sub 1048 1048 1084; Add 1186 1186 1048; Mul 1048 8 1186; Mul 1084 206 1062;
  Sub 1048 1048 1084; Mul 1084 208 1081; Mul 1560 191 1060; Mul 1202 66 1038; Add 1560 1560 1202;
  Mul 1202 203 1281; Mul 1607 53 1459; Add 1202 1202 1607; Add 1560 1560 1202; Mul 1202 9 1560;
  Sub 1084 1084 1202; Sub 1048 1048 1084; Mul 1048 108 1048; Sub 1611 1611 1048; Add 1385 1385 1611;
  Mul 1385 114 1385; Mul 1611 204 1247; Sub 1385 1385 1611; Mul 1611 207 1090; Mul 1019 8 1019;
  Mul 1048 199 1062; Sub 1019 1019 1048; Mul 1048 205 1081; Mul 1112 9 1112; Add 1048 1048 1112;
  Sub 1019 1019 1048; Mul 1048 206 1081; Mul 1112 9 1186; Add 1048 1048 1112; Mul 1112 208 1062;
  Mul 1084 8 1560; Add 1112 1112 1084; Sub 1048 1048 1112; Mul 1112 108 1048; Add 1019 1019 1112;
  Mul 1019 113 1019; Add 1611 1611 1019; Sub 1385 1385 1611; Mul 1611 1043 1385; Add 1034 1034 1611;
  Div 1034 1034 1085; Mul 1611 1072 1034; Sub 1074 1074 1611; Mul 1611 211 1074; Mul 1019 216 1090;
  Arg 1112 1 12; Mul 1084 215 1112; Mul 1202 113 1084; Sub 1019 1019 1202; Mul 1202 218 1019; Mul 1607 114 1622;
  Mul 1018 0 1247; Sub 1607 1607 1018; Mul 1018 217 1607; Add 1202 1202 1018; Mul 1112 216 1112;
  Mul 1018 1 1112; Mul 1546 215 1087; Add 1018 1018 1546; Sub 1202 1202 1018; Mul 1018 0 1090;
  Mul 1546 113 1622; Add 1018 1018 1546; Mul 1546 220 1018; Mul 1557 114 1084; Mul 1252 216 1247;
  Add 1557 1557 1252; Mul 1252 221 1557; Sub 1546 1546 1252].
Definition casadi_f0_92 : list instruction := [
  Sub 1202 1202 1546; Mul 1546 214 1202; Mul 1252 213 1546; Mul 1252 212 1252; Mul 1136 225 1252;
  Mul 1587 114 1112; Mul 1590 215 1247; Sub 1587 1587 1590; Mul 1590 101 1587; Mul 1333 107 1084;
  Sub 1590 1590 1333; Mul 1333 223 1590; Add 1610 1136 1333; Mul 1191 216 1087; Mul 1340 1 1084;
  Sub 1191 1191 1340; Mul 1340 113 1112; Mul 1552 215 1090; Add 1340 1340 1552; Mul 1552 218 1340;
  Mul 1512 228 1607; Add 1552 1552 1512; Add 1191 1191 1552; Mul 1552 221 1587; Mul 1512 224 1018;
  Add 1552 1552 1512; Sub 1191 1191 1552; Mul 1552 214 1191; Mul 1512 213 1552; Mul 1512 212 1512;
  Mul 1585 231 1512; Mul 1121 101 1557; Mul 1017 107 1112; Add 1121 1121 1017; Mul 1017 230 1121;
  Sub 1585 1585 1017; Sub 1017 1610 1585; Add 1333 1333 1136; Sub 1585 1333 1585; Add 1136 1017 1585;
  Mul 1601 144 1090; Mul 1280 215 1601; Mul 1425 240 1112; Add 1280 1280 1425; Mul 1425 236 1247;
  Mul 1498 238 1090; Add 1425 1425 1498; Mul 1498 220 1425; Mul 1558 237 1557; Add 1498 1498 1558;
  Sub 1280 1280 1498; Mul 1498 115 1084; Add 1280 1280 1498; Mul 1498 212 1121; Mul 1558 242 1498;
  Mul 1580 101 1090; Mul 1241 241 1580; Add 1558 1558 1241; Add 1558 1280 1558; Mul 1241 244 1558;
  Mul 1091 213 1191; Mul 1243 243 1091; Add 1268 1241 1243; Mul 1432 237 1587; Mul 1270 224 1425;
  Sub 1432 1432 1270; Mul 1601 216 1601; Mul 1270 240 1084; Sub 1601 1601 1270; Sub 1432 1432 1601;
  Mul 1601 115 1112; Sub 1432 1432 1601; Mul 1601 212 1590; Mul 1601 242 1601; Mul 1270 247 1580;
  Sub 1601 1601 1270; Sub 1601 1432 1601; Mul 1270 249 1601; Mul 1565 213 1202; Mul 1578 248 1565;
  Add 1109 1270 1578; Sub 1332 1268 1109; Sub 1136 1136 1332; Add 1578 1578 1270; Add 1243 1243 1241;
  Sub 1241 1578 1243; Add 1136 1136 1241; Mul 1241 9 1019; Mul 1270 217 1081; Add 1241 1241 1270;
  Mul 1270 8 1557; Mul 1332 220 1062; Add 1270 1270 1332; Sub 1241 1241 1270; Mul 1270 254 1241;
  Mul 1332 218 1081; Mul 1608 9 1607; Add 1332 1332 1608; Mul 1608 8 1018; Mul 1584 221 1062;
  Sub 1608 1608 1584; Sub 1332 1332 1608; Mul 1608 253 1332; Add 1270 1270 1608; Mul 1019 8 1019;
  Mul 1608 217 1062; Sub 1019 1019 1608; Mul 1608 220 1081; Mul 1584 9 1557; Sub 1608 1608 1584;
  Sub 1019 1019 1608; Mul 1608 257 1019; Mul 1584 221 1081; Mul 1282 9 1018; Add 1584 1584 1282;
  Mul 1282 8 1607; Mul 1166 218 1062; Sub 1282 1282 1166; Add 1584 1584 1282; Mul 1282 256 1584;
  Add 1608 1608 1282; Mul 1282 259 1112; Sub 1166 1087 1620; Mul 1548 215 1166; Add 1282 1282 1548;
  Sub 1608 1608 1282; Add 1270 1270 1608; Mul 1608 213 1270; Mul 1282 276 1608; Mul 1548 114 1081;
  Mul 1279 9 1247; Sub 1548 1548 1279; Mul 1279 8 1090; Mul 1266 113 1062; Sub 1279 1279 1266;
  Sub 1548 1548 1279; Mul 1279 260 1548; Mul 1266 9 1090; Mul 1093 113 1081; Add 1266 1266 1093;
  Mul 1093 8 1247; Mul 1272 114 1062; Add 1093 1093 1272; Sub 1266 1266 1093; Mul 1093 263 1266;
  Add 1279 1279 1093; Mul 1093 265 1279; Mul 1272 8 1587; Mul 1424 224 1062].
Definition casadi_f0_93 : list instruction := [
  Sub 1272 1272 1424; Mul 1424 9 1340; Mul 1441 228 1081; Add 1424 1424 1441; Add 1272 1272 1424;
  Mul 1424 262 1272; Add 1093 1093 1424; Mul 1424 127 1548; Mul 1441 268 1266; Add 1424 1424 1441;
  Mul 1441 216 1424; Mul 1274 267 1084; Sub 1441 1441 1274; Add 1093 1093 1441; Mul 1441 135 1241;
  Mul 1274 95 1112; Add 1441 1441 1274; Sub 1093 1093 1441; Mul 1441 102 1587; Mul 1274 108 1084;
  Sub 1441 1441 1274; Mul 1274 79 1272; Mul 1324 8 1340; Mul 1257 228 1062; Sub 1324 1324 1257; Mul 1257 9 1587;
  Mul 1426 224 1081; Add 1257 1257 1426; Sub 1324 1324 1257; Mul 1257 85 1324; Mul 1426 81 1084;
  Sub 1257 1257 1426; Add 1274 1274 1257; Add 1274 1441 1274; Mul 1257 269 1274; Mul 1257 275 1257;
  Mul 1426 79 1548; Mul 1255 85 1266; Add 1426 1426 1255; Mul 1255 102 1090; Sub 1426 1426 1255;
  Mul 1327 272 1426; Add 1257 1257 1327; Sub 1257 1093 1257; Mul 1327 258 1257; Add 1444 1282 1327;
  Mul 1625 254 1272; Mul 1624 265 1332; Add 1625 1625 1624; Mul 1624 216 1166; Mul 1579 259 1084;
  Sub 1624 1624 1579; Mul 1579 257 1324; Mul 1515 273 1584; Add 1579 1579 1515; Add 1624 1624 1579;
  Add 1625 1625 1624; Mul 1624 213 1625; Mul 1579 284 1624; Mul 1515 253 1279; Mul 1541 262 1241;
  Add 1515 1515 1541; Mul 1424 215 1424; Mul 1541 267 1112; Add 1424 1424 1541; Sub 1515 1515 1424;
  Mul 1424 95 1084; Mul 1541 135 1272; Add 1424 1424 1541; Add 1515 1515 1424; Mul 1424 79 1241;
  Mul 1541 85 1019; Mul 1271 81 1112; Sub 1541 1541 1271; Add 1424 1424 1541; Mul 1541 102 1557;
  Mul 1271 108 1112; Add 1541 1541 1271; Sub 1424 1424 1541; Mul 1271 269 1424; Mul 1182 275 1271;
  Mul 1174 283 1426; Add 1182 1182 1174; Sub 1182 1515 1182; Mul 1174 279 1182; Add 1573 1579 1174;
  Sub 1574 1444 1573; Mul 1127 292 1426; Mul 1132 288 1266; Mul 1238 287 1081; Mul 1287 108 1607;
  Mul 1259 9 1287; Add 1238 1238 1259; Mul 1259 102 1087; Mul 1618 108 1018; Add 1259 1259 1618;
  Mul 1618 8 1259; Mul 1421 289 1062; Sub 1618 1618 1421; Sub 1238 1238 1618; Mul 1618 264 1238;
  Add 1132 1132 1618; Mul 1618 291 1548; Mul 1287 8 1287; Mul 1421 287 1062; Sub 1287 1287 1421;
  Mul 1421 289 1081; Mul 1259 9 1259; Add 1421 1421 1259; Add 1287 1287 1421; Mul 1421 261 1287;
  Add 1618 1618 1421; Sub 1132 1132 1618; Mul 1618 281 1625; Mul 1421 278 1541; Sub 1618 1618 1421;
  Mul 1421 255 1441; Mul 1259 270 1270; Add 1421 1421 1259; Sub 1618 1618 1421; Add 1132 1132 1618;
  Mul 1618 213 1132; Mul 1618 269 1618; Mul 1421 275 1618; Add 1259 1127 1421; Mul 1495 288 1019;
  Mul 1537 256 1238; Add 1495 1495 1537; Mul 1537 295 1112; Mul 1581 102 1607; Mul 1561 215 1581;
  Add 1537 1537 1561; Sub 1495 1495 1537; Mul 1537 291 1241; Mul 1561 253 1287; Add 1537 1537 1561;
  Sub 1495 1495 1537; Mul 1537 296 1441; Mul 1561 254 1548; Mul 1633 261 1332; Add 1561 1561 1633;
  Mul 1633 257 1266; Mul 1604 264 1584; Add 1633 1633 1604; Add 1561 1561 1633; Mul 1633 270 1561;
  Add 1537 1537 1633; Mul 1633 274 1625; Mul 1604 278 1255].
Definition casadi_f0_94 : list instruction := [
  Sub 1633 1633 1604; Sub 1537 1537 1633; Add 1495 1495 1537; Mul 1537 213 1495; Mul 1537 269 1537;
  Mul 1633 282 1537; Mul 1604 297 1424; Add 1157 1633 1604; Mul 1239 216 1581; Mul 1401 295 1084;
  Sub 1239 1239 1401; Mul 1401 288 1324; Mul 1485 273 1238; Add 1401 1401 1485; Add 1239 1239 1401;
  Mul 1401 291 1272; Mul 1485 265 1287; Add 1401 1401 1485; Sub 1239 1239 1401; Mul 1401 274 1270;
  Mul 1485 255 1255; Sub 1401 1401 1485; Mul 1485 281 1561; Mul 1514 296 1541; Sub 1485 1485 1514;
  Sub 1401 1401 1485; Add 1239 1239 1401; Mul 1401 213 1239; Mul 1401 269 1401; Mul 1485 271 1401;
  Mul 1514 300 1274; Add 1572 1485 1514; Add 1421 1421 1127; Add 1127 1572 1421; Add 1157 1157 1127;
  Sub 1248 1259 1157; Add 1604 1604 1633; Add 1514 1514 1485; Add 1259 1514 1259; Add 1604 1604 1259;
  Sub 1421 1421 1604; Add 1248 1248 1421; Add 1174 1174 1579; Add 1327 1327 1282; Sub 1282 1174 1327;
  Add 1248 1248 1282; Sub 1574 1574 1248; Mul 1248 66 1241; Mul 1282 253 1060; Sub 1248 1248 1282;
  Mul 1282 53 1019; Mul 1579 256 1281; Add 1282 1282 1579; Sub 1248 1248 1282; Mul 1282 308 1248;
  Mul 1579 66 1332; Mul 1421 254 1060; Sub 1579 1579 1421; Mul 1421 257 1281; Mul 1485 53 1584;
  Add 1421 1421 1485; Sub 1579 1579 1421; Mul 1421 304 1579; Add 1282 1282 1421; Mul 1421 53 1241;
  Mul 1485 253 1281; Add 1421 1421 1485; Mul 1485 66 1019; Mul 1633 256 1060; Sub 1485 1485 1633;
  Add 1421 1421 1485; Mul 1485 311 1421; Mul 1633 254 1281; Mul 1228 53 1332; Add 1633 1633 1228;
  Mul 1228 66 1584; Mul 1517 257 1060; Sub 1228 1228 1517; Add 1633 1633 1228; Mul 1228 310 1633;
  Add 1485 1485 1228; Mul 1228 313 1112; Add 1517 1218 1166; Mul 1227 215 1517; Add 1228 1228 1227;
  Sub 1485 1485 1228; Add 1282 1282 1485; Mul 1485 213 1282; Mul 1228 330 1485; Mul 1227 66 1548;
  Mul 1409 261 1060; Sub 1227 1227 1409; Mul 1409 53 1266; Mul 1229 264 1281; Add 1409 1409 1229;
  Sub 1227 1227 1409; Mul 1409 314 1227; Mul 1229 53 1548; Mul 1523 261 1281; Add 1229 1229 1523;
  Mul 1523 66 1266; Mul 1570 264 1060; Sub 1523 1523 1570; Add 1229 1229 1523; Mul 1523 317 1229;
  Add 1409 1409 1523; Mul 1523 319 1409; Mul 1570 66 1272; Mul 1210 265 1060; Sub 1570 1570 1210;
  Mul 1210 53 1324; Mul 1602 273 1281; Add 1210 1210 1602; Sub 1570 1570 1210; Mul 1210 316 1570;
  Add 1523 1523 1210; Mul 1210 128 1227; Mul 1602 322 1229; Add 1210 1210 1602; Mul 1602 216 1210;
  Mul 1576 321 1084; Sub 1602 1602 1576; Add 1523 1523 1602; Mul 1602 131 1248; Mul 1576 68 1112;
  Add 1602 1602 1576; Sub 1523 1523 1602; Mul 1602 91 1272; Mul 1576 86 1324; Add 1602 1602 1576;
  Add 1602 1441 1602; Mul 1576 61 1570; Mul 1242 53 1272; Mul 1539 265 1281; Add 1242 1242 1539;
  Mul 1539 66 1324; Mul 1224 273 1060; Sub 1539 1539 1224; Add 1242 1242 1539; Mul 1539 54 1242;
  Mul 1224 47 1084; Sub 1539 1539 1224; Add 1576 1576 1539; Add 1576 1602 1576; Mul 1539 323 1576;
  Mul 1539 329 1539; Mul 1224 91 1548; Mul 1266 86 1266; Add 1224 1224 1266].
Definition casadi_f0_95 : list instruction := [
  Sub 1224 1224 1255; Mul 1266 61 1227; Mul 1253 54 1229; Add 1266 1266 1253; Add 1266 1224 1266;
  Mul 1253 326 1266; Add 1539 1539 1253; Sub 1539 1523 1539; Mul 1253 312 1539; Add 1307 1228 1253;
  Mul 1400 308 1570; Mul 1311 319 1579; Add 1400 1400 1311; Mul 1311 216 1517; Mul 1213 313 1084;
  Sub 1311 1311 1213; Mul 1213 311 1242; Mul 1094 327 1633; Add 1213 1213 1094; Add 1311 1311 1213;
  Add 1400 1400 1311; Mul 1311 213 1400; Mul 1213 338 1311; Mul 1094 304 1409; Mul 1402 316 1248;
  Add 1094 1094 1402; Mul 1210 215 1210; Mul 1402 321 1112; Add 1210 1210 1402; Sub 1094 1094 1210;
  Mul 1210 68 1084; Mul 1402 131 1570; Add 1210 1210 1402; Add 1094 1094 1210; Mul 1210 91 1241;
  Mul 1019 86 1019; Add 1210 1210 1019; Sub 1210 1210 1541; Mul 1019 61 1248; Mul 1402 54 1421;
  Mul 1616 47 1112; Sub 1402 1402 1616; Add 1019 1019 1402; Add 1019 1210 1019; Mul 1402 323 1019;
  Mul 1616 329 1402; Mul 1571 337 1266; Add 1616 1616 1571; Sub 1616 1094 1616; Mul 1571 333 1616;
  Add 1577 1213 1571; Sub 1206 1307 1577; Mul 1189 346 1266; Mul 1199 342 1227; Mul 1361 86 1166;
  Sub 1361 1361 1287; Mul 1287 66 1361; Mul 1171 341 1060; Sub 1287 1287 1171; Mul 1171 343 1281;
  Mul 1166 91 1166; Sub 1238 1238 1166; Mul 1166 53 1238; Add 1171 1171 1166; Sub 1287 1287 1171;
  Mul 1171 315 1287; Add 1199 1199 1171; Mul 1171 345 1229; Mul 1166 341 1281; Mul 1361 53 1361;
  Add 1166 1166 1361; Mul 1238 66 1238; Mul 1361 343 1060; Sub 1238 1238 1361; Add 1166 1166 1238;
  Mul 1238 318 1166; Add 1171 1171 1238; Add 1199 1199 1171; Mul 1171 332 1210; Mul 1238 335 1400;
  Add 1171 1171 1238; Mul 1238 309 1602; Mul 1361 324 1282; Add 1238 1238 1361; Sub 1171 1171 1238;
  Add 1199 1199 1171; Mul 1171 213 1199; Mul 1171 323 1171; Mul 1238 329 1171; Add 1361 1189 1238;
  Mul 1188 342 1248; Mul 1308 304 1287; Add 1188 1188 1308; Mul 1308 345 1421; Mul 1597 310 1166;
  Add 1308 1308 1597; Mul 1597 350 1112; Mul 1332 86 1332; Mul 1584 91 1584; Sub 1332 1332 1584;
  Sub 1581 1581 1332; Mul 1332 215 1581; Add 1597 1597 1332; Sub 1308 1308 1597; Add 1188 1188 1308;
  Mul 1308 349 1602; Mul 1597 308 1227; Mul 1332 315 1579; Add 1597 1597 1332; Mul 1332 311 1229;
  Mul 1584 318 1633; Add 1332 1332 1584; Add 1597 1597 1332; Mul 1332 324 1597; Add 1308 1308 1332;
  Mul 1332 332 1224; Mul 1584 328 1400; Add 1332 1332 1584; Sub 1308 1308 1332; Add 1188 1188 1308;
  Mul 1308 213 1188; Mul 1308 323 1308; Mul 1332 336 1308; Mul 1584 351 1019; Add 1203 1332 1584;
  Mul 1376 342 1570; Mul 1528 319 1287; Add 1376 1376 1528; Mul 1528 216 1581; Mul 1378 350 1084;
  Sub 1528 1528 1378; Mul 1378 345 1242; Mul 1320 327 1166; Add 1378 1378 1320; Add 1528 1528 1378;
  Add 1376 1376 1528; Mul 1528 309 1224; Mul 1378 328 1282; Add 1528 1528 1378; Mul 1378 349 1210;
  Mul 1320 335 1597; Add 1378 1378 1320; Sub 1528 1528 1378; Add 1376 1376 1528; Mul 1528 213 1376;
  Mul 1528 323 1528; Mul 1378 325 1528; Mul 1320 354 1576; Add 1563 1378 1320].
Definition casadi_f0_96 : list instruction := [
  Add 1238 1238 1189; Add 1189 1563 1238; Add 1203 1203 1189; Sub 1482 1361 1203; Add 1584 1584 1332;
  Add 1320 1320 1378; Add 1361 1320 1361; Add 1584 1584 1361; Sub 1238 1238 1584; Add 1482 1482 1238;
  Add 1571 1571 1213; Add 1253 1253 1228; Sub 1228 1571 1253; Add 1482 1482 1228; Sub 1206 1206 1482;
  Mul 1482 19 1248; Mul 1228 304 1632; Sub 1482 1482 1228; Mul 1228 35 1112; Mul 1213 215 1042;
  Add 1228 1228 1213; Add 1482 1482 1228; Mul 1228 362 1482; Mul 1213 19 1579; Mul 1238 308 1632;
  Sub 1213 1213 1238; Mul 1238 313 1042; Mul 1378 35 1517; Add 1238 1238 1378; Sub 1213 1213 1238;
  Mul 1238 358 1213; Add 1228 1228 1238; Mul 1238 35 1248; Mul 1378 304 1042; Add 1238 1238 1378;
  Mul 1378 19 1112; Mul 1332 215 1632; Sub 1378 1378 1332; Sub 1238 1238 1378; Mul 1378 365 1238;
  Mul 1332 308 1042; Mul 1599 35 1579; Add 1332 1332 1599; Mul 1599 19 1517; Mul 1377 313 1632;
  Sub 1599 1599 1377; Add 1332 1332 1599; Mul 1599 364 1332; Add 1378 1378 1599; Mul 1599 367 1421;
  Sub 1377 1633 1030; Mul 1532 310 1377; Add 1599 1599 1532; Add 1378 1378 1599; Add 1228 1228 1378;
  Mul 1378 213 1228; Mul 1599 385 1378; Mul 1532 19 1227; Mul 1140 315 1632; Sub 1532 1532 1140;
  Mul 1140 368 1532; Mul 1201 35 1227; Mul 1526 315 1042; Add 1201 1201 1526; Mul 1526 39 1201;
  Mul 1198 373 1229; Add 1526 1526 1198; Add 1140 1140 1526; Mul 1526 372 1140; Mul 1198 19 1570;
  Mul 1533 319 1632; Sub 1198 1198 1533; Mul 1533 216 1042; Mul 1535 35 1084; Sub 1533 1533 1535;
  Sub 1198 1198 1533; Mul 1533 370 1198; Add 1526 1526 1533; Mul 1533 39 1532; Mul 1535 376 1201;
  Add 1533 1533 1535; Mul 1535 377 1533; Mul 1207 35 1570; Mul 1564 319 1042; Add 1207 1207 1564;
  Mul 1564 19 1084; Mul 1128 216 1632; Add 1564 1564 1128; Sub 1207 1207 1564; Mul 1564 375 1207;
  Add 1535 1535 1564; Add 1526 1526 1535; Mul 1535 69 1238; Add 1526 1526 1535; Mul 1535 62 1570;
  Mul 1564 55 1242; Mul 1128 48 1084; Sub 1564 1564 1128; Add 1535 1535 1564; Add 1535 1602 1535;
  Mul 1564 380 1198; Mul 1128 24 1207; Mul 1190 31 1242; Add 1128 1128 1190; Add 1564 1564 1128;
  Add 1564 1535 1564; Mul 1128 378 1564; Mul 1128 384 1128; Mul 1190 62 1227; Mul 1246 55 1229;
  Add 1190 1190 1246; Add 1190 1224 1190; Mul 1246 380 1532; Mul 1542 24 1201; Mul 1562 31 1229;
  Add 1542 1542 1562; Add 1246 1246 1542; Add 1246 1190 1246; Mul 1542 382 1246; Add 1128 1128 1542;
  Sub 1128 1526 1128; Mul 1542 366 1128; Add 1562 1599 1542; Mul 1295 362 1198; Mul 1314 372 1213;
  Add 1295 1295 1314; Mul 1314 365 1207; Mul 1394 377 1332; Add 1314 1314 1394; Mul 1394 367 1242;
  Mul 1525 327 1377; Add 1394 1394 1525; Add 1314 1314 1394; Add 1295 1295 1314; Mul 1314 213 1295;
  Mul 1394 393 1314; Mul 1525 358 1140; Mul 1291 370 1482; Add 1525 1525 1291; Mul 1291 364 1533;
  Mul 1269 375 1238; Add 1291 1291 1269; Add 1525 1525 1291; Mul 1291 69 1207; Sub 1525 1525 1291;
  Mul 1291 62 1248; Mul 1269 55 1421; Mul 1566 48 1112; Sub 1269 1269 1566].
Definition casadi_f0_97 : list instruction := [
  Add 1291 1291 1269; Add 1291 1210 1291; Mul 1269 380 1482; Mul 1566 24 1238; Mul 1146 31 1421;
  Add 1566 1566 1146; Add 1269 1269 1566; Add 1269 1291 1269; Mul 1566 378 1269; Mul 1146 384 1566;
  Mul 1524 392 1246; Add 1146 1146 1524; Sub 1146 1525 1146; Mul 1524 388 1146; Add 1544 1394 1524;
  Sub 1144 1562 1544; Mul 1322 401 1246; Mul 1586 397 1532; Mul 1161 48 1633; Mul 1169 55 1517;
  Sub 1161 1161 1169; Sub 1287 1287 1161; Mul 1161 19 1287; Mul 1169 396 1632; Sub 1161 1161 1169;
  Mul 1169 398 1042; Mul 1554 55 1579; Mul 1633 62 1633; Sub 1554 1554 1633; Sub 1581 1581 1554;
  Mul 1554 35 1581; Add 1169 1169 1554; Sub 1161 1161 1169; Mul 1169 369 1161; Add 1586 1586 1169;
  Mul 1169 400 1201; Mul 1554 396 1042; Mul 1287 35 1287; Add 1554 1554 1287; Mul 1581 19 1581;
  Mul 1287 398 1632; Sub 1581 1581 1287; Add 1554 1554 1581; Mul 1581 371 1554; Add 1169 1169 1581;
  Mul 1581 402 1229; Mul 1517 62 1517; Mul 1579 48 1579; Sub 1517 1517 1579; Sub 1166 1166 1517;
  Mul 1517 318 1166; Add 1581 1581 1517; Add 1169 1169 1581; Add 1586 1586 1169; Mul 1169 387 1291;
  Mul 1581 390 1295; Add 1169 1169 1581; Mul 1581 363 1535; Mul 1517 379 1228; Add 1581 1581 1517;
  Sub 1169 1169 1581; Add 1586 1586 1169; Mul 1169 213 1586; Mul 1169 378 1169; Mul 1581 384 1169;
  Add 1517 1322 1581; Mul 1579 397 1482; Mul 1287 358 1161; Add 1579 1579 1287; Mul 1287 400 1238;
  Mul 1633 364 1554; Add 1287 1287 1633; Mul 1633 402 1421; Mul 1251 310 1166; Add 1633 1633 1251;
  Add 1287 1287 1633; Add 1579 1579 1287; Mul 1287 405 1535; Mul 1633 362 1532; Mul 1251 369 1213;
  Add 1633 1633 1251; Mul 1251 365 1201; Mul 1582 371 1332; Add 1251 1251 1582; Mul 1582 367 1229;
  Mul 1245 318 1377; Add 1582 1582 1245; Add 1251 1251 1582; Add 1633 1633 1251; Mul 1251 379 1633;
  Add 1287 1287 1251; Mul 1251 387 1190; Mul 1582 383 1295; Add 1251 1251 1582; Sub 1287 1287 1251;
  Add 1579 1579 1287; Mul 1287 213 1579; Mul 1287 378 1287; Mul 1251 391 1287; Mul 1582 406 1269;
  Add 1245 1251 1582; Mul 1592 397 1198; Mul 1159 372 1161; Add 1592 1592 1159; Mul 1159 400 1207;
  Mul 1290 377 1554; Add 1159 1159 1290; Mul 1290 402 1242; Mul 1162 327 1166; Add 1290 1290 1162;
  Add 1159 1159 1290; Add 1592 1592 1159; Mul 1159 363 1190; Mul 1290 383 1228; Add 1159 1159 1290;
  Mul 1290 405 1291; Mul 1162 390 1633; Add 1290 1290 1162; Sub 1159 1159 1290; Add 1592 1592 1159;
  Mul 1159 213 1592; Mul 1159 378 1159; Mul 1290 381 1159; Mul 1162 409 1564; Add 1519 1290 1162;
  Add 1581 1581 1322; Add 1322 1519 1581; Add 1245 1245 1322; Sub 1319 1517 1245; Add 1582 1582 1251;
  Add 1162 1162 1290; Add 1517 1162 1517; Add 1582 1582 1517; Sub 1581 1581 1582; Add 1319 1319 1581;
  Add 1524 1524 1394; Add 1542 1542 1599; Sub 1599 1524 1542; Add 1319 1319 1599; Sub 1144 1144 1319;
  Mul 1319 413 1482; Sub 1599 1213 1082; Mul 1394 358 1599; Add 1319 1319 1394; Mul 1394 16 1238;
  Mul 1581 364 1016; Sub 1394 1394 1581; Mul 1581 15 1421; Mul 1290 310 1613].
Definition casadi_f0_98 : list instruction := [
  Add 1581 1581 1290; Sub 1394 1394 1581; Mul 1581 419 1394; Mul 1290 16 1332; Mul 1251 365 1016;
  Sub 1290 1290 1251; Mul 1251 367 1613; Mul 1154 15 1377; Add 1251 1251 1154; Sub 1290 1290 1251;
  Mul 1251 418 1290; Add 1581 1581 1251; Mul 1251 15 1238; Mul 1154 364 1613; Add 1251 1251 1154;
  Mul 1154 16 1421; Mul 1168 310 1016; Sub 1154 1154 1168; Add 1251 1251 1154; Mul 1154 422 1251;
  Mul 1168 365 1613; Mul 1556 15 1332; Add 1168 1168 1556; Mul 1556 16 1377; Mul 1547 367 1016;
  Sub 1556 1556 1547; Add 1168 1168 1556; Mul 1556 421 1168; Add 1154 1154 1556; Add 1581 1581 1154;
  Add 1319 1319 1581; Mul 1581 213 1319; Mul 1154 439 1581; Mul 1556 423 1532; Mul 1547 16 1201;
  Mul 1538 371 1016; Sub 1547 1547 1538; Mul 1538 15 1229; Mul 1529 318 1613; Add 1538 1538 1529;
  Sub 1547 1547 1538; Mul 1538 40 1547; Mul 1529 15 1201; Mul 1520 371 1613; Add 1529 1529 1520;
  Mul 1520 16 1229; Mul 1143 318 1016; Sub 1520 1520 1143; Add 1529 1529 1520; Mul 1520 42 1529;
  Add 1538 1538 1520; Add 1556 1556 1538; Mul 1538 372 1556; Mul 1520 424 1198; Add 1538 1538 1520;
  Mul 1520 40 1532; Mul 1143 14 1547; Mul 1145 18 1529; Add 1143 1143 1145; Add 1520 1520 1143;
  Mul 1143 429 1520; Mul 1145 16 1207; Mul 1448 377 1016; Sub 1145 1145 1448; Mul 1448 15 1242;
  Mul 1583 327 1613; Add 1448 1448 1583; Sub 1145 1145 1448; Mul 1448 428 1145; Add 1143 1143 1448;
  Add 1538 1538 1143; Mul 1143 43 1394; Mul 1448 431 1482; Sub 1143 1143 1448; Add 1538 1538 1143;
  Mul 1143 198 1198; Mul 1448 25 1207; Mul 1583 32 1242; Add 1448 1448 1583; Add 1143 1143 1448;
  Add 1143 1535 1143; Mul 1448 433 1198; Mul 1583 26 1145; Mul 1575 15 1207; Mul 1567 377 1613;
  Add 1575 1575 1567; Mul 1567 16 1242; Mul 1559 327 1016; Sub 1567 1567 1559; Add 1575 1575 1567;
  Mul 1567 28 1575; Add 1583 1583 1567; Add 1448 1448 1583; Add 1448 1143 1448; Mul 1583 430 1448;
  Mul 1583 438 1583; Mul 1567 198 1532; Mul 1559 25 1201; Mul 1310 32 1229; Add 1559 1559 1310;
  Add 1567 1567 1559; Add 1567 1190 1567; Mul 1559 433 1532; Mul 1310 26 1547; Mul 1370 28 1529;
  Add 1310 1310 1370; Add 1559 1559 1310; Add 1559 1567 1559; Mul 1310 435 1559; Add 1583 1583 1310;
  Sub 1583 1538 1583; Mul 1310 420 1583; Add 1370 1154 1310; Mul 1300 413 1198; Mul 1317 372 1599;
  Add 1300 1300 1317; Mul 1317 419 1145; Mul 1594 429 1290; Add 1317 1317 1594; Mul 1594 422 1575;
  Mul 1469 436 1168; Add 1594 1594 1469; Add 1317 1317 1594; Add 1300 1300 1317; Mul 1317 213 1300;
  Mul 1594 447 1317; Mul 1469 358 1556; Mul 1354 424 1482; Add 1469 1469 1354; Mul 1354 418 1520;
  Mul 1321 428 1394; Add 1354 1354 1321; Add 1469 1469 1354; Mul 1354 43 1145; Mul 1321 431 1198;
  Sub 1354 1354 1321; Sub 1469 1469 1354; Mul 1354 198 1482; Mul 1321 25 1238; Mul 1355 32 1421;
  Add 1321 1321 1355; Add 1354 1354 1321; Add 1354 1291 1354; Mul 1321 433 1482; Mul 1355 26 1394;
  Mul 1303 28 1251; Add 1355 1355 1303; Add 1321 1321 1355; Add 1321 1354 1321].
Definition casadi_f0_99 : list instruction := [
  Mul 1355 430 1321; Mul 1303 438 1355; Mul 1373 446 1559; Add 1303 1303 1373; Sub 1303 1469 1303;
  Mul 1373 442 1303; Add 1225 1594 1373; Sub 1555 1370 1225; Mul 1641 455 1559; Mul 1645 450 1532;
  Mul 1648 25 1377; Mul 1634 32 1332; Sub 1648 1648 1634; Sub 1161 1161 1648; Mul 1648 369 1161;
  Add 1645 1645 1648; Mul 1648 453 1547; Mul 1634 32 1213; Mul 1377 198 1377; Sub 1634 1634 1377;
  Sub 1554 1554 1634; Mul 1634 16 1554; Mul 1377 452 1016; Sub 1634 1634 1377; Mul 1377 454 1613;
  Mul 1332 198 1332; Mul 1213 25 1213; Sub 1332 1332 1213; Sub 1166 1166 1332; Mul 1332 15 1166;
  Add 1377 1377 1332; Sub 1634 1634 1377; Mul 1377 425 1634; Add 1648 1648 1377; Mul 1377 456 1529;
  Mul 1332 452 1613; Mul 1554 15 1554; Add 1332 1332 1554; Mul 1166 16 1166; Mul 1554 454 1016;
  Sub 1166 1166 1554; Add 1332 1332 1166; Mul 1166 427 1332; Add 1377 1377 1166; Add 1648 1648 1377;
  Add 1645 1645 1648; Mul 1648 441 1354; Mul 1377 444 1300; Add 1648 1648 1377; Mul 1377 417 1143;
  Mul 1166 432 1319; Add 1377 1377 1166; Sub 1648 1648 1377; Add 1645 1645 1648; Mul 1648 213 1645;
  Mul 1648 430 1648; Mul 1377 438 1648; Add 1166 1641 1377; Mul 1554 450 1482; Mul 1213 358 1161;
  Add 1554 1554 1213; Mul 1213 453 1394; Mul 1617 418 1634; Add 1213 1213 1617; Mul 1251 456 1251;
  Mul 1617 421 1332; Add 1251 1251 1617; Add 1213 1213 1251; Add 1554 1554 1213; Mul 1213 459 1143;
  Mul 1251 413 1532; Mul 1599 369 1599; Add 1251 1251 1599; Mul 1599 419 1547; Mul 1290 425 1290;
  Add 1599 1599 1290; Mul 1529 422 1529; Mul 1168 427 1168; Add 1529 1529 1168; Add 1599 1599 1529;
  Add 1251 1251 1599; Mul 1599 432 1251; Add 1213 1213 1599; Mul 1599 441 1567; Mul 1529 437 1300;
  Add 1599 1599 1529; Sub 1213 1213 1599; Add 1554 1554 1213; Mul 1213 213 1554; Mul 1213 430 1213;
  Mul 1599 445 1213; Mul 1529 460 1321; Add 1168 1599 1529; Mul 1290 450 1198; Mul 1161 372 1161;
  Add 1290 1290 1161; Mul 1161 453 1145; Mul 1634 429 1634; Add 1161 1161 1634; Mul 1634 456 1575;
  Mul 1332 436 1332; Add 1634 1634 1332; Add 1161 1161 1634; Add 1290 1290 1161; Mul 1161 417 1567;
  Mul 1634 437 1319; Add 1161 1161 1634; Mul 1634 459 1354; Mul 1332 444 1251; Add 1634 1634 1332;
  Sub 1161 1161 1634; Add 1290 1290 1161; Mul 1161 213 1290; Mul 1161 430 1161; Mul 1634 434 1161;
  Mul 1332 463 1448; Add 1617 1634 1332; Add 1377 1377 1641; Add 1641 1617 1377; Add 1168 1168 1641;
  Sub 1635 1166 1168; Add 1529 1529 1599; Add 1332 1332 1634; Add 1166 1332 1166; Add 1529 1529 1166;
  Sub 1377 1377 1529; Add 1635 1635 1377; Add 1373 1373 1594; Add 1310 1310 1154; Sub 1154 1373 1310;
  Add 1635 1635 1154; Sub 1555 1555 1635; Add 1144 1144 1555; Add 1206 1206 1144; Add 1574 1574 1206;
  Add 1136 1136 1574; Mul 1136 0 1136; Mul 1574 235 1622; Add 1136 1136 1574; Mul 1279 261 1279;
  Mul 1574 262 1548; Add 1279 1279 1574; Mul 1409 315 1409; Mul 1574 316 1227; Add 1409 1409 1574;
  Mul 1140 369 1140; Mul 1574 370 1532; Add 1140 1140 1574; Mul 1533 371 1533].
Definition casadi_f0_100 : list instruction := [
  Mul 1574 375 1201; Add 1533 1533 1574; Add 1140 1140 1533; Mul 1556 369 1556; Mul 1533 424 1532;
  Add 1556 1556 1533; Mul 1520 425 1520; Mul 1533 428 1547; Add 1520 1520 1533; Add 1556 1556 1520;
  Add 1520 1140 1556; Sub 1533 1269 1321; Mul 1574 480 1533; Sub 1206 1564 1448; Mul 1635 1197 1206;
  Add 1154 1574 1635; Mul 1154 20 1154; Add 1520 1520 1154; Add 1154 1409 1520; Mul 1594 485 1269;
  Mul 1377 50 1321; Add 1594 1594 1377; Sub 1377 1019 1594; Mul 1634 487 1377; Mul 1599 485 1564;
  Mul 1628 50 1448; Add 1599 1599 1628; Sub 1628 1576 1599; Mul 1326 1286 1628; Add 1549 1634 1326;
  Mul 1549 37 1549; Add 1154 1154 1549; Add 1549 1279 1154; Mul 1509 493 1019; Mul 1423 83 1594;
  Add 1509 1509 1423; Sub 1423 1424 1509; Mul 1399 495 1423; Mul 1375 493 1576; Mul 1352 83 1599;
  Add 1375 1375 1352; Sub 1352 1274 1375; Mul 1167 1294 1352; Add 1123 1399 1167; Mul 1123 80 1123;
  Add 1549 1549 1123; Mul 1123 237 1090; Mul 1425 113 1425; Sub 1123 1123 1425; Sub 1425 1549 1123;
  Mul 1313 501 1274; Mul 1106 104 1375; Add 1313 1313 1106; Sub 1106 1590 1313; Mul 1545 1299 1106;
  Mul 1209 501 1424; Mul 1172 104 1509; Add 1209 1209 1172; Add 1172 1121 1209; Mul 1540 503 1172;
  Sub 1205 1545 1540; Mul 1205 100 1205; Add 1425 1425 1205; Mul 1425 508 1425; Mul 1205 216 1202;
  Mul 1222 219 1084; Sub 1205 1205 1222; Mul 1222 215 1191; Mul 1531 227 1112; Add 1222 1222 1531;
  Add 1205 1205 1222; Mul 1222 500 1205; Add 1425 1425 1222; Add 1222 1525 1469; Mul 1533 20 1533;
  Mul 1531 512 1533; Sub 1233 1246 1559; Mul 1183 511 1233; Add 1531 1531 1183; Sub 1222 1222 1531;
  Add 1531 1094 1222; Mul 1377 37 1377; Mul 1183 516 1377; Mul 1522 485 1246; Mul 1088 50 1559;
  Add 1522 1522 1088; Sub 1088 1266 1522; Mul 1137 514 1088; Add 1183 1183 1137; Sub 1531 1531 1183;
  Add 1183 1515 1531; Mul 1423 80 1423; Mul 1137 520 1423; Mul 1513 493 1266; Mul 1135 83 1522;
  Add 1513 1513 1135; Sub 1135 1426 1513; Mul 1267 518 1135; Add 1137 1137 1267; Sub 1183 1183 1137;
  Add 1137 1280 1183; Mul 1172 100 1172; Mul 1267 524 1172; Mul 1536 501 1426; Mul 1527 104 1513;
  Add 1536 1536 1527; Add 1527 1580 1536; Mul 1518 522 1527; Add 1267 1267 1518; Add 1137 1137 1267;
  Mul 1267 526 1137; Mul 1518 221 1090; Mul 1018 113 1018; Add 1518 1518 1018; Mul 1607 114 1607;
  Mul 1018 218 1247; Sub 1607 1607 1018; Add 1518 1518 1607; Mul 1607 216 1518; Mul 1018 525 1084;
  Sub 1607 1607 1018; Mul 1018 521 1607; Add 1267 1267 1018; Add 1018 1526 1538; Mul 1115 20 1206;
  Mul 1115 512 1115; Mul 1102 529 1233; Add 1115 1115 1102; Sub 1018 1018 1115; Add 1115 1523 1018;
  Mul 1102 37 1628; Mul 1102 516 1102; Mul 1278 531 1088; Add 1102 1102 1278; Sub 1115 1115 1102;
  Add 1102 1093 1115; Mul 1278 80 1352; Mul 1278 520 1278; Mul 1226 533 1135; Add 1278 1278 1226;
  Sub 1102 1102 1278; Add 1278 1432 1102; Mul 1226 100 1106; Mul 1226 524 1226; Mul 1275 535 1527;
  Sub 1226 1226 1275; Sub 1278 1278 1226; Mul 1226 536 1278; Mul 1275 215 1518].
Definition casadi_f0_101 : list instruction := [
  Mul 1277 525 1112; Add 1275 1275 1277; Mul 1277 534 1275; Add 1226 1226 1277; Add 1267 1267 1226;
  Sub 1425 1425 1267; Mul 1267 120 1209; Mul 1226 527 1121; Sub 1267 1267 1226; Mul 1226 539 1267;
  Mul 1277 120 1536; Mul 1129 527 1580; Sub 1277 1277 1129; Mul 1129 526 1277; Mul 1237 538 1607;
  Add 1129 1129 1237; Mul 1237 508 1267; Mul 1187 537 1205; Add 1237 1237 1187; Add 1129 1129 1237;
  Mul 1237 540 1518; Mul 1187 214 1084; Mul 1234 525 1187; Sub 1237 1237 1234; Sub 1129 1129 1237;
  Mul 1129 141 1129; Mul 1234 537 1129; Add 1226 1226 1234; Mul 1234 527 1590; Mul 1236 120 1313;
  Add 1234 1234 1236; Mul 1236 546 1234; Mul 1175 544 1518; Mul 1196 214 1112; Mul 1142 525 1196;
  Add 1175 1175 1142; Mul 1142 508 1234; Mul 1193 543 1205; Add 1142 1142 1193; Mul 1193 536 1277;
  Mul 1195 538 1275; Add 1193 1193 1195; Add 1142 1142 1193; Sub 1142 1175 1142; Mul 1142 141 1142;
  Mul 1193 543 1142; Add 1236 1236 1193; Sub 1226 1226 1236; Add 1425 1425 1226; Mul 1226 553 1565;
  Mul 1236 238 1587; Mul 1340 236 1340; Mul 1193 144 1084; Sub 1340 1340 1193; Add 1236 1236 1340;
  Mul 1340 224 1236; Mul 1193 542 1587; Add 1340 1340 1193; Mul 1587 144 1587; Mul 1193 549 1084;
  Sub 1587 1587 1193; Mul 1193 216 1587; Mul 1195 548 1084; Sub 1193 1193 1195; Add 1340 1340 1193;
  Mul 1193 1334 1121; Mul 1195 1336 1580; Add 1200 1193 1195; Mul 1200 212 1200; Sub 1200 1340 1200;
  Mul 1152 249 1200; Add 1124 1226 1152; Mul 1149 556 1091; Mul 1236 220 1236; Mul 1557 542 1557;
  Sub 1236 1236 1557; Mul 1587 215 1587; Mul 1557 548 1112; Add 1587 1587 1557; Sub 1236 1236 1587;
  Mul 1587 241 1590; Mul 1498 225 1498; Sub 1587 1587 1498; Sub 1587 1236 1587; Mul 1498 244 1587;
  Add 1557 1149 1498; Sub 1124 1124 1557; Mul 1557 242 1252; Mul 1151 223 1580; Sub 1557 1557 1151;
  Mul 1151 1342 1590; Sub 1193 1151 1193; Mul 1193 212 1193; Sub 1193 1193 1123; Mul 1158 249 1193;
  Mul 1118 551 1565; Add 1104 1158 1118; Mul 1099 560 1558; Mul 1119 213 1518; Mul 1101 243 1119;
  Add 1217 1099 1101; Sub 1104 1104 1217; Add 1104 1557 1104; Sub 1124 1124 1104; Sub 1104 1123 1340;
  Mul 1217 219 1104; Mul 1254 557 1202; Add 1217 1217 1254; Mul 1254 227 1236; Mul 1276 555 1191;
  Add 1254 1254 1276; Add 1217 1217 1254; Mul 1254 525 1280; Mul 1276 239 1518; Add 1254 1254 1276;
  Add 1217 1217 1254; Mul 1254 340 1590; Mul 1276 231 1191; Mul 1438 227 1121; Sub 1276 1276 1438;
  Mul 1438 219 1590; Mul 1215 225 1202; Add 1438 1438 1215; Sub 1276 1276 1438; Mul 1276 212 1276;
  Mul 1438 225 1276; Add 1254 1254 1438; Mul 1438 242 1202; Mul 1215 219 1580; Sub 1438 1438 1215;
  Mul 1215 231 1518; Mul 1163 525 1121; Sub 1215 1215 1163; Sub 1438 1438 1215; Sub 1438 1546 1438;
  Mul 1438 212 1438; Mul 1215 242 1438; Mul 1163 559 1580; Sub 1215 1215 1163; Add 1254 1254 1215;
  Sub 1217 1217 1254; Mul 1217 213 1217; Sub 1124 1124 1217; Mul 1254 567 1608; Mul 1215 260 1272;
  Mul 1163 263 1324; Mul 1165 127 1084; Sub 1163 1163 1165; Add 1215 1215 1163].
Definition casadi_f0_102 : list instruction := [
  Mul 1163 265 1215; Mul 1165 547 1272; Add 1163 1163 1165; Mul 1272 127 1272; Mul 1324 268 1324;
  Mul 1165 563 1084; Sub 1324 1324 1165; Add 1272 1272 1324; Mul 1324 216 1272; Mul 1165 562 1084;
  Sub 1324 1324 1165; Add 1163 1163 1324; Mul 1324 1138 1424; Mul 1165 1357 1426; Add 1496 1324 1165;
  Mul 1496 269 1496; Add 1496 1163 1496; Mul 1179 258 1496; Add 1443 1254 1179; Mul 1430 570 1624;
  Mul 1215 253 1215; Mul 1241 547 1241; Add 1215 1215 1241; Mul 1272 215 1272; Mul 1241 562 1112;
  Add 1272 1272 1241; Sub 1215 1215 1272; Mul 1548 135 1548; Sub 1215 1215 1548; Mul 1271 271 1271;
  Mul 1548 283 1274; Add 1271 1271 1548; Sub 1271 1215 1271; Mul 1548 279 1271; Add 1272 1430 1548;
  Sub 1443 1443 1272; Mul 1272 300 1426; Mul 1241 275 1401; Add 1263 1272 1241; Mul 1231 271 1618;
  Mul 1258 292 1274; Add 1235 1231 1258; Add 1263 1263 1235; Mul 1235 1366 1274; Add 1324 1324 1235;
  Mul 1324 269 1324; Add 1324 1279 1324; Mul 1415 258 1324; Mul 1177 565 1608; Add 1208 1415 1177;
  Mul 1204 574 1182; Mul 1483 213 1561; Mul 1133 284 1483; Add 1420 1204 1133; Sub 1208 1208 1420;
  Add 1263 1263 1208; Sub 1443 1443 1263; Mul 1263 571 1270; Add 1208 1163 1279; Mul 1420 255 1208;
  Sub 1263 1263 1420; Mul 1420 278 1215; Mul 1407 569 1625; Add 1420 1420 1407; Add 1263 1263 1420;
  Mul 1420 296 1515; Mul 1407 280 1561; Add 1420 1420 1407; Add 1263 1263 1420; Mul 1420 471 1274;
  Mul 1407 278 1424; Mul 1223 282 1625; Add 1407 1407 1223; Mul 1223 255 1274; Mul 1192 271 1270;
  Add 1223 1223 1192; Sub 1407 1407 1223; Sub 1407 1132 1407; Mul 1407 269 1407; Mul 1223 271 1407;
  Add 1420 1420 1223; Mul 1223 573 1426; Mul 1192 255 1426; Mul 1284 275 1270; Add 1192 1192 1284;
  Mul 1284 296 1424; Mul 1194 282 1561; Add 1284 1284 1194; Sub 1192 1192 1284; Sub 1192 1239 1192;
  Mul 1192 269 1192; Mul 1284 275 1192; Add 1223 1223 1284; Sub 1420 1420 1223; Add 1263 1263 1420;
  Mul 1263 213 1263; Sub 1443 1443 1263; Mul 1420 581 1485; Mul 1223 314 1570; Mul 1284 317 1242;
  Mul 1194 128 1084; Sub 1284 1284 1194; Add 1223 1223 1284; Mul 1284 319 1223; Mul 1194 561 1570;
  Add 1284 1284 1194; Mul 1570 128 1570; Mul 1194 322 1242; Mul 1391 577 1084; Sub 1194 1194 1391;
  Add 1570 1570 1194; Mul 1194 216 1570; Mul 1391 576 1084; Sub 1194 1194 1391; Add 1284 1284 1194;
  Mul 1194 1379 1019; Mul 1391 1381 1266; Add 1131 1194 1391; Mul 1131 323 1131; Add 1131 1284 1131;
  Mul 1170 312 1131; Add 1164 1420 1170; Mul 1470 584 1311; Mul 1223 304 1223; Mul 1248 561 1248;
  Add 1223 1223 1248; Mul 1570 215 1570; Mul 1248 576 1112; Add 1570 1570 1248; Sub 1223 1223 1570;
  Mul 1227 131 1227; Sub 1223 1223 1227; Mul 1402 325 1402; Mul 1227 337 1576; Add 1402 1402 1227;
  Sub 1402 1223 1402; Mul 1227 333 1402; Add 1570 1470 1227; Sub 1164 1164 1570; Mul 1570 354 1266;
  Mul 1248 329 1528; Add 1120 1570 1248; Mul 1396 325 1171; Mul 1383 346 1576; Add 1185 1396 1383;
  Add 1120 1120 1185; Mul 1185 1390 1576; Add 1194 1194 1185; Mul 1194 323 1194].
Definition casadi_f0_103 : list instruction := [
  Add 1194 1409 1194; Mul 1147 312 1194; Mul 1092 579 1485; Add 1150 1147 1092; Mul 1367 588 1616;
  Mul 1353 213 1597; Mul 1126 338 1353; Add 1298 1367 1126; Sub 1150 1150 1298; Add 1120 1120 1150;
  Sub 1164 1164 1120; Mul 1120 585 1282; Add 1150 1284 1409; Mul 1298 309 1150; Sub 1120 1120 1298;
  Mul 1298 332 1223; Mul 1457 583 1400; Add 1298 1298 1457; Add 1120 1120 1298; Mul 1298 349 1094;
  Mul 1457 334 1597; Add 1298 1298 1457; Add 1120 1120 1298; Mul 1298 473 1576; Mul 1457 332 1019;
  Mul 1103 336 1400; Add 1457 1457 1103; Mul 1103 309 1576; Mul 1372 325 1282; Add 1103 1103 1372;
  Sub 1457 1457 1103; Sub 1457 1199 1457; Mul 1457 323 1457; Mul 1103 325 1457; Add 1298 1298 1103;
  Mul 1103 587 1266; Mul 1372 309 1266; Mul 1359 329 1282; Add 1372 1372 1359; Mul 1359 349 1019;
  Mul 1139 336 1597; Add 1359 1359 1139; Sub 1372 1372 1359; Sub 1372 1376 1372; Mul 1372 323 1372;
  Mul 1359 329 1372; Add 1103 1103 1359; Sub 1298 1298 1103; Add 1120 1120 1298; Mul 1120 213 1120;
  Sub 1164 1164 1120; Mul 1298 594 1378; Mul 1103 368 1198; Mul 1359 39 1207; Mul 1139 373 1242;
  Add 1359 1359 1139; Add 1103 1103 1359; Mul 1359 372 1103; Mul 1139 575 1198; Add 1359 1359 1139;
  Mul 1139 39 1198; Mul 1111 376 1207; Add 1139 1139 1111; Mul 1111 377 1139; Mul 1207 590 1207;
  Add 1111 1111 1207; Add 1359 1359 1111; Mul 1111 1404 1269; Mul 1207 1405 1246; Add 1117 1111 1207;
  Mul 1117 378 1117; Add 1117 1359 1117; Mul 1250 366 1117; Add 1338 1298 1250; Mul 1110 597 1314;
  Mul 1103 358 1103; Mul 1114 575 1482; Add 1103 1103 1114; Mul 1139 364 1139; Mul 1238 590 1238;
  Add 1139 1139 1238; Add 1103 1103 1139; Mul 1201 69 1201; Add 1103 1103 1201; Mul 1566 381 1566;
  Mul 1201 392 1564; Add 1566 1566 1201; Sub 1566 1103 1566; Mul 1201 388 1566; Add 1139 1110 1201;
  Sub 1338 1338 1139; Mul 1139 409 1246; Mul 1238 384 1159; Add 1114 1139 1238; Mul 1343 381 1169;
  Mul 1348 401 1564; Add 1122 1343 1348; Add 1114 1114 1122; Mul 1122 1414 1564; Add 1111 1111 1122;
  Mul 1111 378 1111; Add 1111 1140 1111; Mul 1097 366 1111; Mul 1125 592 1378; Add 1329 1097 1125;
  Mul 1325 601 1146; Mul 1105 213 1633; Mul 1346 393 1105; Add 1330 1325 1346; Sub 1329 1329 1330;
  Add 1114 1114 1329; Sub 1338 1338 1114; Mul 1114 598 1228; Add 1329 1359 1140; Mul 1330 363 1329;
  Sub 1114 1114 1330; Mul 1330 387 1103; Mul 1302 596 1295; Add 1330 1330 1302; Add 1114 1114 1330;
  Mul 1330 405 1525; Mul 1302 389 1633; Add 1330 1330 1302; Add 1114 1114 1330; Mul 1330 475 1564;
  Mul 1302 387 1269; Mul 1318 391 1295; Add 1302 1302 1318; Mul 1318 363 1564; Mul 1297 381 1228;
  Add 1318 1318 1297; Sub 1302 1302 1318; Sub 1302 1586 1302; Mul 1302 378 1302; Mul 1318 381 1302;
  Add 1330 1330 1318; Mul 1318 600 1246; Mul 1297 363 1246; Mul 1315 384 1228; Add 1297 1297 1315;
  Mul 1315 405 1269; Mul 1289 391 1633; Add 1315 1315 1289; Sub 1297 1297 1315; Sub 1297 1592 1297;
  Mul 1297 378 1297; Mul 1315 384 1297; Add 1318 1318 1315; Sub 1330 1330 1318].
Definition casadi_f0_104 : list instruction := [
  Add 1114 1114 1330; Mul 1114 213 1114; Sub 1338 1338 1114; Mul 1330 607 1581; Mul 1318 423 1198;
  Mul 1315 40 1145; Mul 1289 42 1575; Add 1315 1315 1289; Add 1318 1318 1315; Mul 1315 372 1318;
  Mul 1289 589 1198; Add 1315 1315 1289; Mul 1289 40 1198; Mul 1312 14 1145; Mul 1575 18 1575;
  Add 1312 1312 1575; Add 1289 1289 1312; Mul 1312 429 1289; Mul 1145 603 1145; Add 1312 1312 1145;
  Add 1315 1315 1312; Mul 1312 1428 1321; Mul 1145 1264 1559; Add 1575 1312 1145; Mul 1575 430 1575;
  Add 1575 1315 1575; Mul 1418 420 1575; Add 1309 1330 1418; Mul 1244 610 1317; Mul 1318 358 1318;
  Mul 1609 589 1482; Add 1318 1318 1609; Mul 1289 418 1289; Mul 1394 603 1394; Add 1289 1289 1394;
  Add 1318 1318 1289; Mul 1547 43 1547; Mul 1289 431 1532; Sub 1547 1547 1289; Add 1318 1318 1547;
  Mul 1355 434 1355; Mul 1547 446 1448; Add 1355 1355 1547; Sub 1355 1318 1355; Mul 1547 442 1355;
  Add 1289 1244 1547; Sub 1309 1309 1289; Mul 1289 463 1559; Mul 1394 438 1161; Add 1609 1289 1394;
  Mul 1605 434 1648; Mul 1606 455 1448; Add 1603 1605 1606; Add 1609 1609 1603; Mul 1603 1437 1448;
  Add 1312 1312 1603; Mul 1312 430 1312; Add 1312 1556 1312; Mul 1591 420 1312; Mul 1600 605 1581;
  Add 1598 1591 1600; Mul 1588 614 1303; Mul 1595 213 1251; Mul 1593 447 1595; Add 1589 1588 1593;
  Sub 1598 1598 1589; Add 1609 1609 1598; Sub 1309 1309 1609; Mul 1609 13 1319; Add 1598 1315 1556;
  Mul 1589 417 1598; Sub 1609 1609 1589; Mul 1589 441 1318; Mul 1141 609 1300; Add 1589 1589 1141;
  Add 1609 1609 1589; Mul 1589 459 1469; Mul 1141 443 1251; Add 1589 1589 1141; Add 1609 1609 1589;
  Mul 1589 477 1448; Mul 1141 441 1321; Mul 1100 445 1300; Add 1141 1141 1100; Mul 1100 417 1448;
  Mul 1450 434 1319; Add 1100 1100 1450; Sub 1141 1141 1100; Sub 1141 1645 1141; Mul 1141 430 1141;
  Mul 1100 434 1141; Add 1589 1589 1100; Mul 1100 611 1559; Mul 1450 417 1559; Mul 1510 438 1319;
  Add 1450 1450 1510; Mul 1510 459 1321; Mul 1108 445 1251; Add 1510 1510 1108; Sub 1450 1450 1510;
  Sub 1450 1290 1450; Mul 1450 430 1450; Mul 1510 438 1450; Add 1100 1100 1510; Sub 1589 1589 1100;
  Add 1609 1609 1589; Mul 1609 213 1609; Sub 1309 1309 1609; Add 1338 1338 1309; Add 1164 1164 1338;
  Add 1443 1443 1164; Add 1124 1124 1443; Mul 1124 216 1124; Mul 1589 554 1084; Sub 1124 1124 1589;
  Mul 1589 242 1512; Mul 1100 230 1580; Sub 1589 1589 1100; Mul 1100 560 1601; Mul 1510 248 1119;
  Add 1108 1100 1510; Mul 1193 244 1193; Mul 1301 551 1091; Add 1107 1193 1301; Sub 1108 1108 1107;
  Sub 1108 1589 1108; Mul 1107 556 1565; Mul 1316 249 1587; Add 1305 1107 1316; Mul 1292 558 1091;
  Sub 1151 1151 1195; Mul 1151 212 1151; Add 1151 1104 1151; Mul 1195 244 1151; Add 1296 1292 1195;
  Sub 1305 1305 1296; Add 1108 1108 1305; Mul 1305 219 1236; Mul 1296 555 1202; Add 1305 1305 1296;
  Mul 1296 227 1340; Mul 1283 550 1191; Add 1296 1296 1283; Add 1305 1305 1296; Mul 1296 525 1432;
  Mul 1283 246 1518; Add 1296 1296 1283; Add 1305 1305 1296; Mul 1296 231 1276].
Definition casadi_f0_105 : list instruction := [
  Mul 1283 340 1121; Sub 1296 1296 1283; Mul 1283 525 1590; Mul 1288 225 1518; Add 1283 1283 1288;
  Mul 1288 242 1191; Mul 1219 227 1580; Sub 1288 1288 1219; Sub 1283 1283 1288; Add 1283 1552 1283;
  Mul 1283 212 1283; Mul 1288 242 1283; Mul 1219 616 1580; Sub 1288 1288 1219; Sub 1296 1296 1288;
  Add 1305 1305 1296; Mul 1305 213 1305; Add 1108 1108 1305; Mul 1296 570 1608; Mul 1288 258 1271;
  Add 1219 1296 1288; Mul 1285 572 1624; Add 1235 1235 1165; Mul 1235 269 1235; Sub 1235 1235 1208;
  Mul 1165 279 1235; Add 1507 1285 1165; Sub 1219 1219 1507; Mul 1507 297 1426; Mul 1511 275 1537;
  Add 1550 1507 1511; Mul 1551 282 1618; Mul 1434 292 1424; Add 1445 1551 1434; Add 1550 1550 1445;
  Mul 1445 574 1257; Mul 1502 276 1483; Add 1504 1445 1502; Mul 1324 279 1324; Mul 1429 565 1624;
  Add 1497 1324 1429; Sub 1504 1504 1497; Add 1550 1550 1504; Sub 1219 1219 1550; Mul 1550 255 1215;
  Mul 1504 569 1270; Add 1550 1550 1504; Mul 1504 278 1163; Mul 1497 564 1625; Add 1504 1504 1497;
  Add 1550 1550 1504; Mul 1504 296 1093; Mul 1497 266 1561; Add 1504 1504 1497; Add 1550 1550 1504;
  Mul 1504 617 1426; Mul 1497 296 1274; Mul 1494 271 1561; Add 1497 1497 1494; Mul 1494 278 1426;
  Mul 1499 275 1625; Add 1494 1494 1499; Sub 1497 1497 1494; Sub 1497 1495 1497; Mul 1497 269 1497;
  Mul 1494 275 1497; Add 1504 1504 1494; Mul 1494 471 1424; Mul 1499 282 1407; Add 1494 1494 1499;
  Sub 1504 1504 1494; Add 1550 1550 1504; Mul 1550 213 1550; Add 1219 1219 1550; Mul 1504 584 1485;
  Mul 1494 312 1402; Add 1499 1504 1494; Mul 1501 586 1311; Add 1185 1185 1391; Mul 1185 323 1185;
  Sub 1185 1185 1150; Mul 1391 333 1185; Add 1500 1501 1391; Sub 1499 1499 1500; Mul 1500 351 1266;
  Mul 1503 329 1308; Add 1506 1500 1503; Mul 1505 336 1171; Mul 1261 346 1019; Add 1489 1505 1261;
  Add 1506 1506 1489; Mul 1489 588 1539; Mul 1491 330 1353; Add 1406 1489 1491; Mul 1194 333 1194;
  Mul 1484 579 1311; Add 1481 1194 1484; Sub 1406 1406 1481; Add 1506 1506 1406; Sub 1499 1499 1506;
  Mul 1506 309 1223; Mul 1406 583 1282; Add 1506 1506 1406; Mul 1406 332 1284; Mul 1481 578 1400;
  Add 1406 1406 1481; Add 1506 1506 1406; Mul 1406 349 1523; Mul 1481 320 1597; Add 1406 1406 1481;
  Add 1506 1506 1406; Mul 1406 619 1266; Mul 1481 349 1576; Mul 1486 325 1597; Add 1481 1481 1486;
  Mul 1486 332 1266; Mul 1488 329 1400; Add 1486 1486 1488; Sub 1481 1481 1486; Sub 1481 1188 1481;
  Mul 1481 323 1481; Mul 1486 329 1481; Add 1406 1406 1486; Mul 1486 473 1019; Mul 1488 336 1457;
  Add 1486 1486 1488; Sub 1406 1406 1486; Add 1506 1506 1406; Mul 1506 213 1506; Add 1499 1499 1506;
  Mul 1406 597 1378; Mul 1486 366 1566; Add 1488 1406 1486; Mul 1487 599 1314; Add 1122 1122 1207;
  Mul 1122 378 1122; Sub 1122 1122 1329; Mul 1207 388 1122; Add 1490 1487 1207; Sub 1488 1488 1490;
  Mul 1490 406 1246; Mul 1493 384 1287; Add 1492 1490 1493; Mul 1221 391 1169; Mul 1476 401 1269;
  Add 1478 1221 1476; Add 1492 1492 1478; Mul 1478 601 1128; Mul 1382 385 1105].
Definition casadi_f0_106 : list instruction := [
  Add 1471 1478 1382; Mul 1111 388 1111; Mul 1468 592 1314; Add 1473 1111 1468; Sub 1471 1471 1473;
  Add 1492 1492 1471; Sub 1488 1488 1492; Mul 1492 363 1103; Mul 1471 596 1228; Add 1492 1492 1471;
  Mul 1471 387 1359; Mul 1473 591 1295; Add 1471 1471 1473; Add 1492 1492 1471; Mul 1471 405 1526;
  Mul 1473 374 1633; Add 1471 1471 1473; Add 1492 1492 1471; Mul 1471 621 1246; Mul 1473 405 1564;
  Mul 1475 381 1633; Add 1473 1473 1475; Mul 1475 387 1246; Mul 1474 384 1295; Add 1475 1475 1474;
  Sub 1473 1473 1475; Sub 1473 1579 1473; Mul 1473 378 1473; Mul 1475 384 1473; Add 1471 1471 1475;
  Mul 1475 475 1269; Mul 1474 391 1302; Add 1475 1475 1474; Sub 1471 1471 1475; Add 1492 1492 1471;
  Mul 1492 213 1492; Add 1488 1488 1492; Mul 1471 610 1581; Mul 1475 420 1355; Add 1474 1471 1475;
  Mul 1477 612 1317; Add 1603 1603 1145; Mul 1603 430 1603; Sub 1603 1603 1598; Mul 1145 442 1603;
  Add 1480 1477 1145; Sub 1474 1474 1480; Mul 1480 460 1559; Mul 1479 438 1213; Add 1380 1480 1479;
  Mul 1463 445 1648; Mul 1465 455 1321; Add 1358 1463 1465; Add 1380 1380 1358; Mul 1358 614 1583;
  Mul 1458 439 1595; Add 1456 1358 1458; Mul 1312 442 1312; Mul 1460 605 1317; Add 1462 1312 1460;
  Sub 1456 1456 1462; Add 1380 1380 1456; Sub 1474 1474 1380; Mul 1380 417 1318; Mul 1456 609 1319;
  Add 1380 1380 1456; Mul 1456 441 1315; Mul 1462 604 1300; Add 1456 1456 1462; Add 1380 1380 1456;
  Mul 1456 459 1538; Mul 1462 426 1251; Add 1456 1456 1462; Add 1380 1380 1456; Mul 1456 623 1559;
  Mul 1462 459 1448; Mul 1461 434 1251; Add 1462 1462 1461; Mul 1461 441 1559; Mul 1464 438 1300;
  Add 1461 1461 1464; Sub 1462 1462 1461; Sub 1462 1554 1462; Mul 1462 430 1462; Mul 1461 438 1462;
  Add 1456 1456 1461; Mul 1461 477 1321; Mul 1464 445 1141; Add 1461 1461 1464; Sub 1456 1456 1461;
  Add 1380 1380 1456; Mul 1380 213 1380; Add 1474 1474 1380; Add 1488 1488 1474; Add 1499 1499 1488;
  Add 1219 1219 1499; Add 1108 1108 1219; Mul 1108 215 1108; Mul 1456 613 1112; Add 1108 1108 1456;
  Sub 1124 1124 1108; Mul 1108 212 1565; Mul 1456 242 1108; Mul 1461 624 1580; Sub 1456 1456 1461;
  Mul 1461 212 1119; Mul 1464 231 1461; Mul 1467 626 1121; Sub 1464 1464 1467; Add 1464 1252 1464;
  Sub 1456 1456 1464; Mul 1464 213 1438; Add 1467 1456 1464; Mul 1466 269 1608; Mul 1356 275 1466;
  Mul 1454 629 1426; Add 1451 1356 1454; Mul 1449 631 1424; Mul 1447 269 1483; Mul 1335 282 1447;
  Add 1337 1449 1335; Add 1337 1401 1337; Sub 1451 1451 1337; Mul 1337 213 1192; Add 1453 1451 1337;
  Mul 1452 323 1485; Mul 1455 329 1452; Mul 1436 634 1266; Add 1256 1455 1436; Mul 1431 636 1019;
  Mul 1422 323 1353; Mul 1433 336 1422; Add 1230 1431 1433; Add 1230 1528 1230; Sub 1256 1256 1230;
  Mul 1230 213 1372; Add 1427 1256 1230; Mul 1435 378 1378; Mul 1440 384 1435; Mul 1439 639 1246;
  Add 1442 1440 1439; Mul 1411 641 1269; Mul 1413 378 1105; Mul 1216 391 1413; Add 1408 1411 1216;
  Add 1408 1159 1408; Sub 1442 1442 1408; Mul 1408 213 1297; Add 1398 1442 1408].
Definition casadi_f0_107 : list instruction := [
  Mul 1410 430 1581; Mul 1156 438 1410; Mul 1403 644 1559; Add 1412 1156 1403; Mul 1417 646 1321;
  Mul 1416 430 1595; Mul 1419 445 1416; Add 1387 1417 1419; Add 1387 1161 1387; Sub 1412 1412 1387;
  Mul 1387 213 1450; Add 1389 1412 1387; Add 1398 1398 1389; Add 1427 1427 1398; Add 1453 1453 1427;
  Add 1467 1467 1453; Mul 1467 540 1467; Mul 1176 628 1187; Sub 1467 1467 1176; Mul 1176 212 1091;
  Mul 1384 242 1176; Mul 1374 650 1580; Sub 1384 1384 1374; Mul 1374 626 1590; Mul 1386 225 1461;
  Add 1374 1374 1386; Add 1374 1512 1374; Sub 1384 1384 1374; Mul 1374 213 1283; Add 1386 1384 1374;
  Mul 1173 631 1274; Mul 1180 271 1447; Add 1388 1173 1180; Sub 1388 1537 1388; Mul 1393 269 1624;
  Mul 1392 275 1393; Mul 1395 655 1426; Add 1363 1392 1395; Add 1388 1388 1363; Mul 1363 213 1497;
  Sub 1365 1388 1363; Mul 1130 636 1576; Mul 1360 325 1422; Add 1351 1130 1360; Sub 1351 1308 1351;
  Mul 1362 323 1311; Mul 1116 329 1362; Mul 1134 659 1266; Add 1364 1116 1134; Add 1351 1351 1364;
  Mul 1364 213 1481; Sub 1369 1351 1364; Mul 1368 641 1564; Mul 1371 381 1413; Add 1350 1368 1371;
  Sub 1350 1287 1350; Mul 1096 378 1314; Mul 1113 384 1096; Mul 1339 663 1246; Add 1323 1113 1339;
  Add 1350 1350 1323; Mul 1323 213 1473; Sub 1341 1350 1323; Mul 1345 646 1448; Mul 1344 434 1416;
  Add 1347 1345 1344; Sub 1347 1213 1347; Mul 1051 430 1317; Mul 1022 438 1051; Mul 1640 667 1559;
  Add 1071 1022 1640; Add 1347 1347 1071; Mul 1071 213 1462; Sub 1636 1347 1071; Add 1341 1341 1636;
  Add 1369 1369 1341; Add 1365 1365 1369; Add 1386 1386 1365; Mul 1386 544 1386; Mul 1265 653 1196;
  Add 1386 1386 1265; Add 1467 1467 1386; Sub 1124 1124 1467; Add 1425 1425 1124; Mul 1425 1 1425;
  Mul 1124 509 1087; Add 1425 1425 1124; Add 1136 1136 1425; Mul 1425 602 1183; Mul 1124 216 1561;
  Mul 1467 296 1084; Sub 1124 1124 1467; Mul 1467 517 1124; Add 1425 1425 1467; Mul 1467 670 1102;
  Mul 1386 215 1561; Mul 1265 296 1112; Add 1386 1386 1265; Mul 1265 532 1386; Add 1467 1467 1265;
  Add 1425 1425 1467; Mul 1549 671 1549; Mul 1467 216 1270; Mul 1265 255 1084; Sub 1467 1467 1265;
  Mul 1265 215 1625; Mul 1627 278 1112; Add 1265 1265 1627; Add 1467 1467 1265; Mul 1265 492 1467;
  Add 1549 1549 1265; Sub 1425 1425 1549; Mul 1549 675 1209; Mul 1265 215 1132; Mul 1627 290 1112;
  Add 1265 1265 1627; Mul 1627 674 1561; Mul 1642 216 1255; Mul 1643 274 1084; Add 1642 1642 1643;
  Mul 1643 296 1642; Sub 1627 1627 1643; Mul 1643 676 1270; Mul 1441 215 1441; Mul 1631 270 1112;
  Add 1441 1441 1631; Mul 1541 216 1541; Mul 1631 281 1084; Add 1541 1541 1631; Sub 1441 1441 1541;
  Mul 1541 255 1441; Add 1643 1643 1541; Add 1627 1627 1643; Add 1265 1265 1627; Mul 1627 602 1536;
  Mul 1643 523 1124; Add 1627 1627 1643; Mul 1643 671 1209; Mul 1541 502 1467; Add 1643 1643 1541;
  Add 1627 1627 1643; Sub 1627 1265 1627; Mul 1627 672 1627; Mul 1643 502 1627; Add 1549 1549 1643;
  Mul 1643 679 1313; Mul 1132 216 1132; Mul 1541 290 1084; Sub 1132 1132 1541].
Definition casadi_f0_108 : list instruction := [
  Mul 1541 676 1625; Mul 1631 278 1441; Add 1541 1541 1631; Mul 1631 680 1561; Mul 1052 274 1112;
  Mul 1255 215 1255; Sub 1052 1052 1255; Mul 1255 296 1052; Add 1631 1631 1255; Add 1541 1541 1631;
  Sub 1132 1132 1541; Mul 1541 671 1313; Mul 1631 505 1467; Add 1541 1541 1631; Mul 1631 670 1536;
  Mul 1255 523 1386; Add 1631 1631 1255; Add 1541 1541 1631; Add 1541 1132 1541; Mul 1541 672 1541;
  Mul 1631 505 1541; Add 1643 1643 1631; Sub 1549 1549 1643; Add 1425 1425 1549; Mul 1453 674 1453;
  Mul 1549 633 1642; Sub 1453 1453 1549; Mul 1365 680 1365; Mul 1549 657 1052; Add 1365 1365 1549;
  Mul 1447 275 1447; Mul 1426 631 1426; Add 1549 1447 1426; Mul 1643 629 1424; Mul 1631 282 1466;
  Add 1255 1643 1631; Mul 1026 655 1274; Mul 1646 271 1393; Add 1025 1026 1646; Add 1426 1426 1447;
  Add 1447 1025 1426; Add 1255 1255 1447; Sub 1644 1549 1255; Add 1631 1631 1643; Add 1646 1646 1026;
  Add 1549 1646 1549; Add 1631 1631 1549; Sub 1426 1426 1631; Sub 1644 1644 1426; Mul 1422 329 1422;
  Mul 1266 636 1266; Add 1426 1422 1266; Mul 1026 634 1019; Mul 1643 336 1452; Add 1647 1026 1643;
  Mul 1649 659 1576; Mul 1650 325 1362; Add 1651 1649 1650; Add 1266 1266 1422; Add 1422 1651 1266;
  Add 1647 1647 1422; Sub 1652 1426 1647; Add 1643 1643 1026; Add 1650 1650 1649; Add 1426 1650 1426;
  Add 1643 1643 1426; Sub 1266 1266 1643; Sub 1652 1652 1266; Mul 1413 384 1413; Mul 1246 641 1246;
  Add 1266 1413 1246; Mul 1649 639 1269; Mul 1026 391 1435; Add 1653 1649 1026; Mul 1654 663 1564;
  Mul 1655 381 1096; Add 1656 1654 1655; Add 1246 1246 1413; Add 1413 1656 1246; Add 1653 1653 1413;
  Sub 1657 1266 1653; Add 1026 1026 1649; Add 1655 1655 1654; Add 1266 1655 1266; Add 1026 1026 1266;
  Sub 1246 1246 1026; Sub 1657 1657 1246; Mul 1416 438 1416; Mul 1246 646 1559; Add 1654 1416 1246;
  Mul 1649 644 1321; Mul 1658 445 1410; Add 1659 1649 1658; Mul 1660 667 1448; Mul 1661 434 1051;
  Add 1662 1660 1661; Add 1246 1246 1416; Add 1416 1662 1246; Add 1659 1659 1416; Sub 1663 1654 1659;
  Add 1658 1658 1649; Add 1661 1661 1660; Add 1654 1661 1654; Add 1658 1658 1654; Sub 1246 1246 1658;
  Sub 1663 1663 1246; Add 1657 1657 1663; Add 1652 1652 1657; Add 1644 1644 1652; Mul 1644 676 1644;
  Mul 1246 687 1441; Add 1660 1644 1246; Sub 1365 1365 1660; Add 1453 1453 1365; Mul 1219 215 1219;
  Mul 1365 552 1112; Add 1219 1219 1365; Mul 1443 216 1443; Mul 1365 568 1084; Sub 1443 1443 1365;
  Sub 1219 1219 1443; Add 1453 1453 1219; Add 1425 1425 1453; Mul 1425 2 1425; Mul 1453 649 1620;
  Add 1425 1425 1453; Add 1136 1136 1425; Mul 1154 677 1154; Mul 1425 216 1282; Mul 1453 309 1084;
  Sub 1425 1425 1453; Mul 1453 215 1400; Mul 1219 332 1112; Add 1453 1453 1219; Add 1425 1425 1453;
  Mul 1453 484 1425; Add 1154 1154 1453; Mul 1453 706 1531; Mul 1219 216 1597; Mul 1443 349 1084;
  Sub 1219 1219 1443; Mul 1443 513 1219; Add 1453 1453 1443; Mul 1443 712 1115; Mul 1365 215 1597;
  Mul 1660 349 1112; Add 1365 1365 1660; Mul 1660 530 1365; Add 1443 1443 1660].
Definition casadi_f0_109 : list instruction := [
  Add 1453 1453 1443; Sub 1154 1154 1453; Mul 1453 711 1509; Mul 1443 706 1513; Mul 1660 519 1219;
  Add 1443 1443 1660; Mul 1660 677 1509; Mul 1649 494 1425; Add 1660 1660 1649; Add 1443 1443 1660;
  Mul 1660 215 1199; Mul 1649 344 1112; Add 1660 1660 1649; Mul 1649 714 1597; Mul 1664 216 1224;
  Mul 1665 328 1084; Sub 1664 1664 1665; Mul 1665 349 1664; Add 1649 1649 1665; Mul 1665 716 1282;
  Mul 1210 216 1210; Mul 1666 335 1084; Sub 1210 1210 1666; Mul 1602 215 1602; Mul 1666 324 1112;
  Add 1602 1602 1666; Add 1210 1210 1602; Mul 1602 309 1210; Add 1665 1665 1602; Add 1649 1649 1665;
  Add 1660 1660 1649; Sub 1443 1443 1660; Mul 1443 156 1443; Mul 1649 494 1443; Add 1453 1453 1649;
  Mul 1649 719 1375; Mul 1665 716 1400; Mul 1602 332 1210; Add 1665 1665 1602; Mul 1602 718 1597;
  Mul 1224 215 1224; Mul 1666 328 1112; Add 1224 1224 1666; Mul 1666 349 1224; Add 1602 1602 1666;
  Add 1665 1665 1602; Mul 1199 216 1199; Mul 1602 344 1084; Sub 1199 1199 1602; Sub 1665 1665 1199;
  Mul 1199 677 1375; Mul 1602 497 1425; Add 1199 1199 1602; Mul 1602 712 1513; Mul 1666 519 1365;
  Add 1602 1602 1666; Add 1199 1199 1602; Sub 1199 1665 1199; Mul 1199 156 1199; Mul 1602 497 1199;
  Add 1649 1649 1602; Sub 1453 1453 1649; Add 1154 1154 1453; Mul 1652 716 1652; Mul 1453 694 1210;
  Add 1649 1652 1453; Mul 1369 718 1369; Mul 1602 661 1224; Add 1369 1369 1602; Sub 1649 1649 1369;
  Mul 1427 714 1427; Mul 1369 638 1664; Add 1427 1427 1369; Sub 1649 1649 1427; Mul 1164 216 1164;
  Mul 1427 582 1084; Sub 1164 1164 1427; Mul 1499 215 1499; Mul 1427 618 1112; Add 1499 1499 1427;
  Sub 1164 1164 1499; Add 1649 1649 1164; Add 1154 1154 1649; Mul 1154 3 1154; Mul 1649 681 1218;
  Add 1154 1154 1649; Add 1136 1136 1154; Mul 1154 715 1222; Mul 1649 327 1633; Mul 1164 405 1242;
  Add 1649 1649 1164; Mul 1164 318 1295; Mul 1499 387 1229; Add 1164 1164 1499; Sub 1649 1649 1164;
  Mul 1164 510 1649; Add 1154 1154 1164; Mul 1164 721 1018; Mul 1499 318 1228; Mul 1427 363 1229;
  Add 1499 1499 1427; Mul 1427 310 1633; Mul 1369 405 1421; Add 1427 1427 1369; Sub 1499 1499 1427;
  Mul 1427 528 1499; Add 1164 1164 1427; Add 1154 1154 1164; Mul 1164 722 1520; Mul 1427 310 1295;
  Mul 1369 387 1421; Add 1427 1427 1369; Mul 1369 327 1228; Mul 1602 363 1242; Add 1369 1369 1602;
  Sub 1427 1427 1369; Mul 1369 479 1427; Add 1164 1164 1369; Add 1154 1154 1164; Mul 1164 726 1594;
  Mul 1369 318 1579; Mul 1602 404 1229; Add 1369 1369 1602; Mul 1602 310 1586; Mul 1666 399 1421;
  Add 1602 1602 1666; Sub 1369 1369 1602; Mul 1602 725 1633; Mul 1666 327 1190; Mul 1667 383 1242;
  Add 1666 1666 1667; Mul 1667 318 1535; Mul 1668 379 1229; Add 1667 1667 1668; Sub 1666 1666 1667;
  Mul 1667 405 1666; Add 1602 1602 1667; Mul 1667 727 1228; Mul 1535 310 1535; Mul 1668 379 1421;
  Add 1535 1535 1668; Mul 1668 327 1291; Mul 1669 390 1242; Add 1668 1668 1669; Sub 1535 1535 1668;
  Mul 1668 363 1535; Add 1667 1667 1668; Sub 1602 1602 1667; Add 1369 1369 1602].
Definition casadi_f0_110 : list instruction := [
  Mul 1602 715 1522; Mul 1667 515 1649; Add 1602 1602 1667; Mul 1667 722 1594; Mul 1668 486 1427;
  Add 1667 1667 1668; Sub 1602 1602 1667; Sub 1602 1369 1602; Mul 1602 723 1602; Mul 1667 486 1602;
  Add 1164 1164 1667; Mul 1667 730 1599; Mul 1586 327 1586; Mul 1668 399 1242; Add 1586 1586 1668;
  Mul 1668 318 1592; Mul 1669 408 1229; Add 1668 1668 1669; Sub 1586 1586 1668; Mul 1668 727 1295;
  Mul 1669 387 1535; Add 1668 1668 1669; Mul 1669 731 1633; Mul 1291 318 1291; Mul 1670 390 1229;
  Add 1291 1291 1670; Mul 1190 310 1190; Mul 1670 383 1421; Add 1190 1190 1670; Sub 1291 1291 1190;
  Mul 1190 405 1291; Add 1669 1669 1190; Sub 1668 1668 1669; Add 1586 1586 1668; Mul 1668 722 1599;
  Mul 1669 489 1427; Add 1668 1668 1669; Mul 1669 721 1522; Mul 1190 515 1499; Add 1669 1669 1190;
  Sub 1668 1668 1669; Sub 1668 1586 1668; Mul 1668 723 1668; Mul 1669 489 1668; Add 1667 1667 1669;
  Sub 1164 1164 1667; Add 1154 1154 1164; Mul 1164 725 1398; Mul 1667 643 1666; Add 1164 1164 1667;
  Mul 1667 731 1341; Mul 1669 665 1291; Add 1667 1667 1669; Mul 1669 727 1657; Mul 1190 701 1535;
  Add 1670 1669 1190; Add 1667 1667 1670; Add 1164 1164 1667; Mul 1667 310 1488; Mul 1670 620 1421;
  Add 1667 1667 1670; Mul 1670 327 1338; Mul 1671 595 1242; Add 1670 1670 1671; Mul 1144 318 1144;
  Mul 1671 395 1229; Add 1672 1144 1671; Add 1670 1670 1672; Add 1667 1667 1670; Sub 1164 1164 1667;
  Add 1154 1154 1164; Mul 1164 4 1154; Mul 1667 720 1030; Add 1164 1164 1667; Add 1136 1136 1164;
  Mul 1164 728 1469; Mul 1667 372 1251; Mul 1670 459 1198; Add 1667 1667 1670; Mul 1670 369 1300;
  Mul 1672 441 1532; Add 1670 1670 1672; Sub 1667 1667 1670; Mul 1670 443 1667; Add 1164 1164 1670;
  Mul 1670 733 1538; Mul 1672 369 1319; Mul 1673 417 1532; Add 1672 1672 1673; Mul 1673 358 1251;
  Mul 1674 459 1482; Add 1673 1673 1674; Sub 1672 1672 1673; Mul 1673 426 1672; Add 1670 1670 1673;
  Add 1164 1164 1670; Mul 1670 734 1556; Mul 1673 358 1300; Mul 1674 441 1482; Add 1673 1673 1674;
  Mul 1674 372 1319; Mul 1675 417 1198; Add 1674 1674 1675; Sub 1673 1673 1674; Mul 1674 478 1673;
  Add 1670 1670 1674; Add 1164 1164 1670; Mul 1670 735 1321; Mul 1674 369 1554; Mul 1675 458 1532;
  Add 1674 1674 1675; Mul 1675 358 1645; Mul 1676 451 1482; Add 1675 1675 1676; Sub 1674 1674 1675;
  Mul 1675 736 1251; Mul 1676 372 1567; Mul 1677 437 1198; Add 1676 1676 1677; Mul 1677 369 1143;
  Mul 1678 432 1532; Add 1677 1677 1678; Sub 1676 1676 1677; Mul 1677 459 1676; Add 1675 1675 1677;
  Mul 1677 738 1319; Mul 1143 358 1143; Mul 1678 432 1482; Add 1143 1143 1678; Mul 1678 372 1354;
  Mul 1679 444 1198; Add 1678 1678 1679; Sub 1143 1143 1678; Mul 1678 417 1143; Add 1677 1677 1678;
  Sub 1675 1675 1677; Add 1674 1674 1675; Mul 1675 728 1559; Mul 1677 438 1667; Add 1675 1675 1677;
  Mul 1677 734 1321; Mul 1678 445 1673; Add 1677 1677 1678; Sub 1675 1675 1677; Sub 1674 1674 1675;
  Mul 1674 430 1674; Mul 1675 445 1674; Add 1670 1670 1675; Mul 1675 739 1448].
Definition casadi_f0_111 : list instruction := [
  Mul 1645 372 1645; Mul 1677 451 1198; Add 1645 1645 1677; Mul 1677 369 1290; Mul 1678 462 1532;
  Add 1677 1677 1678; Sub 1645 1645 1677; Mul 1677 738 1300; Mul 1678 441 1143; Add 1677 1677 1678;
  Mul 1678 741 1251; Mul 1354 369 1354; Mul 1679 444 1532; Add 1354 1354 1679; Mul 1567 358 1567;
  Mul 1679 437 1482; Add 1567 1567 1679; Sub 1354 1354 1567; Mul 1567 459 1354; Add 1678 1678 1567;
  Sub 1677 1677 1678; Add 1645 1645 1677; Mul 1677 734 1448; Mul 1678 434 1673; Add 1677 1677 1678;
  Mul 1678 733 1559; Mul 1567 438 1672; Add 1678 1678 1567; Sub 1677 1677 1678; Sub 1645 1645 1677;
  Mul 1645 430 1645; Mul 1677 434 1645; Add 1675 1675 1677; Sub 1670 1670 1675; Add 1164 1164 1670;
  Mul 1670 736 1389; Mul 1675 648 1676; Add 1670 1670 1675; Mul 1675 741 1636; Mul 1677 669 1354;
  Add 1675 1675 1677; Mul 1677 738 1663; Mul 1678 708 1143; Add 1567 1677 1678; Add 1675 1675 1567;
  Add 1670 1670 1675; Mul 1675 358 1474; Mul 1567 622 1482; Add 1675 1675 1567; Mul 1567 372 1309;
  Mul 1679 608 1198; Add 1567 1567 1679; Mul 1555 369 1555; Mul 1679 449 1532; Add 1680 1555 1679;
  Add 1567 1567 1680; Add 1675 1675 1567; Sub 1670 1670 1675; Add 1164 1164 1670; Mul 1670 5 1164;
  Mul 1675 732 1082; Add 1670 1670 1675; Add 1136 1136 1670; Mul 1670 286 1090; Mul 1675 212 1670;
  Mul 1675 107 1675; Mul 1567 745 1081; Mul 1680 737 1081; Mul 1681 9 1670; Add 1680 1680 1681;
  Mul 1681 743 1062; Mul 1682 286 1247; Mul 1683 8 1682; Add 1681 1681 1683; Sub 1680 1680 1681;
  Mul 1681 269 1680; Mul 1683 81 1681; Mul 1684 746 1281; Mul 1685 743 1081; Mul 1686 9 1682;
  Sub 1685 1685 1686; Mul 1670 8 1670; Mul 1686 737 1062; Sub 1670 1670 1686; Sub 1685 1685 1670;
  Mul 1670 53 1685; Add 1684 1684 1670; Mul 1670 66 1680; Mul 1686 742 1060; Sub 1670 1670 1686;
  Add 1684 1684 1670; Mul 1670 323 1684; Mul 1686 47 1670; Mul 1687 378 1684; Mul 1688 24 1687;
  Mul 1689 752 1042; Mul 1690 66 1685; Mul 1691 746 1060; Sub 1690 1690 1691; Mul 1691 742 1281;
  Mul 1680 53 1680; Add 1691 1691 1680; Sub 1690 1690 1691; Mul 1691 35 1690; Add 1689 1689 1691;
  Mul 1691 378 1689; Mul 1680 31 1691; Sub 1688 1688 1680; Mul 1680 753 1613; Mul 1692 15 1689;
  Add 1680 1680 1692; Mul 1692 16 1684; Mul 1693 747 1016; Sub 1692 1692 1693; Add 1680 1680 1692;
  Mul 1680 430 1680; Mul 1692 26 1680; Mul 1689 16 1689; Mul 1693 753 1016; Sub 1689 1689 1693;
  Mul 1693 747 1613; Mul 1684 15 1684; Add 1693 1693 1684; Sub 1689 1689 1693; Mul 1689 430 1689;
  Mul 1693 28 1689; Sub 1692 1692 1693; Mul 1693 16 1680; Mul 1684 755 1016; Sub 1693 1693 1684;
  Mul 1684 757 1613; Mul 1694 15 1689; Add 1684 1684 1694; Sub 1693 1693 1684; Mul 1684 25 1693;
  Mul 1694 16 1689; Mul 1695 757 1016; Sub 1694 1694 1695; Mul 1695 755 1613; Mul 1696 15 1680;
  Add 1695 1695 1696; Add 1694 1694 1695; Mul 1695 32 1694; Sub 1684 1684 1695; Add 1684 1692 1684;
  Add 1688 1688 1684; Mul 1684 19 1688; Mul 1695 751 1632; Sub 1684 1684 1695].
Definition casadi_f0_112 : list instruction := [
  Mul 1695 763 1042; Mul 1696 19 1690; Mul 1697 752 1632; Sub 1696 1696 1697; Mul 1697 378 1696;
  Mul 1698 31 1697; Mul 1699 380 1687; Sub 1698 1698 1699; Mul 1696 430 1696; Mul 1699 28 1696;
  Mul 1680 433 1680; Sub 1699 1699 1680; Mul 1680 16 1699; Mul 1700 764 1016; Sub 1680 1680 1700;
  Mul 1700 766 1613; Mul 1689 433 1689; Mul 1701 26 1696; Sub 1689 1689 1701; Mul 1701 15 1689;
  Add 1700 1700 1701; Add 1680 1680 1700; Mul 1700 32 1696; Mul 1701 198 1693; Sub 1700 1700 1701;
  Add 1680 1680 1700; Add 1698 1698 1680; Mul 1680 35 1698; Add 1695 1695 1680; Add 1684 1684 1695;
  Add 1687 1687 1693; Mul 1693 48 1687; Add 1695 1691 1694; Mul 1680 19 1695; Mul 1700 765 1632;
  Sub 1680 1680 1700; Mul 1700 768 1042; Add 1701 1697 1696; Mul 1702 35 1701; Add 1700 1700 1702;
  Sub 1680 1680 1700; Mul 1700 55 1680; Sub 1693 1693 1700; Add 1684 1684 1693; Add 1686 1686 1684;
  Mul 1684 66 1686; Mul 1693 749 1060; Sub 1684 1684 1693; Mul 1693 762 1281; Mul 1691 380 1691;
  Mul 1697 24 1697; Sub 1691 1691 1697; Mul 1689 16 1689; Mul 1016 766 1016; Sub 1689 1689 1016;
  Mul 1613 764 1613; Mul 1699 15 1699; Add 1613 1613 1699; Sub 1689 1689 1613; Mul 1694 198 1694;
  Mul 1696 25 1696; Sub 1694 1694 1696; Add 1689 1689 1694; Add 1691 1691 1689; Mul 1689 62 1680;
  Mul 1701 19 1701; Mul 1694 768 1632; Sub 1701 1701 1694; Mul 1694 765 1042; Mul 1695 35 1695;
  Add 1694 1694 1695; Add 1701 1701 1694; Mul 1694 48 1701; Sub 1689 1689 1694; Add 1689 1691 1689;
  Mul 1690 323 1690; Mul 1694 47 1690; Sub 1689 1689 1694; Mul 1694 53 1689; Add 1693 1693 1694;
  Add 1684 1684 1693; Mul 1693 86 1680; Sub 1684 1684 1693; Add 1683 1683 1684; Mul 1684 9 1683;
  Add 1567 1567 1684; Mul 1689 66 1689; Mul 1684 762 1060; Sub 1689 1689 1684; Mul 1684 749 1281;
  Mul 1686 53 1686; Add 1684 1684 1686; Sub 1689 1689 1684; Mul 1684 91 1680; Add 1689 1689 1684;
  Mul 1685 269 1685; Mul 1684 81 1685; Sub 1689 1689 1684; Mul 1684 8 1689; Mul 1686 758 1062;
  Sub 1684 1684 1686; Add 1567 1567 1684; Mul 1680 102 1680; Add 1684 1690 1701; Mul 1686 66 1684;
  Mul 1693 770 1060; Sub 1686 1686 1693; Mul 1693 772 1281; Add 1694 1670 1687; Mul 1695 53 1694;
  Add 1693 1693 1695; Add 1686 1686 1693; Add 1693 1685 1686; Mul 1695 8 1693; Mul 1696 773 1062;
  Sub 1695 1695 1696; Mul 1696 776 1081; Mul 1694 66 1694; Mul 1060 772 1060; Sub 1694 1694 1060;
  Mul 1281 770 1281; Mul 1684 53 1684; Add 1281 1281 1684; Sub 1694 1694 1281; Add 1281 1681 1694;
  Mul 1684 9 1281; Add 1696 1696 1684; Sub 1695 1695 1696; Mul 1695 108 1695; Sub 1680 1680 1695;
  Add 1567 1567 1680; Add 1675 1675 1567; Mul 1675 114 1675; Mul 1247 740 1247; Sub 1675 1675 1247;
  Mul 1090 774 1090; Mul 1683 8 1683; Mul 1247 745 1062; Sub 1683 1683 1247; Mul 1247 758 1081; Mul 1689 9 1689;
  Add 1247 1247 1689; Sub 1683 1683 1247; Mul 1081 773 1081; Mul 1693 9 1693; Add 1081 1081 1693;
  Mul 1281 8 1281; Mul 1062 776 1062; Sub 1281 1281 1062].
Definition casadi_f0_113 : list instruction := [
  Add 1081 1081 1281; Mul 1281 108 1081; Add 1683 1683 1281; Mul 1682 212 1682; Mul 1281 107 1682;
  Sub 1683 1683 1281; Mul 1683 113 1683; Add 1090 1090 1683; Sub 1675 1675 1090; Add 1136 1136 1675;
  Mul 1675 210 1136; Sub 1611 1611 1675; Div 1675 1568 92; Mul 1090 1069 1034; Sub 1675 1675 1090;
  Mul 1090 779 1675; Add 1101 1101 1099; Add 1118 1118 1158; Sub 1101 1101 1118; Add 1498 1498 1149;
  Add 1152 1152 1226; Sub 1498 1498 1152; Add 1557 1557 1498; Sub 1101 1101 1557; Add 1101 1101 1217;
  Add 1133 1133 1204; Add 1177 1177 1415; Sub 1133 1133 1177; Add 1258 1258 1231; Add 1241 1241 1272;
  Add 1258 1258 1241; Add 1548 1548 1430; Add 1179 1179 1254; Sub 1548 1548 1179; Add 1258 1258 1548;
  Sub 1133 1133 1258; Add 1133 1133 1263; Add 1126 1126 1367; Add 1092 1092 1147; Sub 1126 1126 1092;
  Add 1383 1383 1396; Add 1248 1248 1570; Add 1383 1383 1248; Add 1227 1227 1470; Add 1170 1170 1420;
  Sub 1227 1227 1170; Add 1383 1383 1227; Sub 1126 1126 1383; Add 1126 1126 1120; Add 1346 1346 1325;
  Add 1125 1125 1097; Sub 1346 1346 1125; Add 1348 1348 1343; Add 1238 1238 1139; Add 1348 1348 1238;
  Add 1201 1201 1110; Add 1250 1250 1298; Sub 1201 1201 1250; Add 1348 1348 1201; Sub 1346 1346 1348;
  Add 1346 1346 1114; Add 1593 1593 1588; Add 1600 1600 1591; Sub 1593 1593 1600; Add 1606 1606 1605;
  Add 1394 1394 1289; Add 1606 1606 1394; Add 1547 1547 1244; Add 1418 1418 1330; Sub 1547 1547 1418;
  Add 1606 1606 1547; Sub 1593 1593 1606; Add 1593 1593 1609; Add 1346 1346 1593; Add 1126 1126 1346;
  Add 1133 1133 1126; Add 1101 1101 1133; Mul 1101 216 1101; Mul 1609 780 1084; Sub 1101 1101 1609;
  Mul 1609 781 1112; Add 1195 1195 1292; Add 1316 1316 1107; Sub 1195 1195 1316; Sub 1589 1589 1195;
  Add 1301 1301 1193; Add 1510 1510 1100; Sub 1301 1301 1510; Add 1589 1589 1301; Sub 1589 1589 1305;
  Add 1429 1429 1324; Add 1502 1502 1445; Sub 1429 1429 1502; Add 1434 1434 1551; Add 1511 1511 1507;
  Add 1434 1434 1511; Add 1165 1165 1285; Add 1288 1288 1296; Sub 1165 1165 1288; Add 1434 1434 1165;
  Sub 1429 1429 1434; Sub 1429 1429 1550; Add 1484 1484 1194; Add 1491 1491 1489; Sub 1484 1484 1491;
  Add 1261 1261 1505; Add 1503 1503 1500; Add 1261 1261 1503; Add 1391 1391 1501; Add 1494 1494 1504;
  Sub 1391 1391 1494; Add 1261 1261 1391; Sub 1484 1484 1261; Sub 1484 1484 1506; Add 1468 1468 1111;
  Add 1382 1382 1478; Sub 1468 1468 1382; Add 1476 1476 1221; Add 1493 1493 1490; Add 1476 1476 1493;
  Add 1207 1207 1487; Add 1486 1486 1406; Sub 1207 1207 1486; Add 1476 1476 1207; Sub 1468 1468 1476;
  Sub 1468 1468 1492; Add 1460 1460 1312; Add 1458 1458 1358; Sub 1460 1460 1458; Add 1465 1465 1463;
  Add 1479 1479 1480; Add 1465 1465 1479; Add 1145 1145 1477; Add 1475 1475 1471; Sub 1145 1145 1475;
  Add 1465 1465 1145; Sub 1460 1460 1465; Sub 1460 1460 1380; Add 1468 1468 1460; Add 1484 1484 1468;
  Add 1429 1429 1484; Add 1589 1589 1429; Mul 1589 215 1589; Add 1609 1609 1589; Sub 1101 1101 1609;
  Sub 1456 1456 1464; Sub 1451 1451 1337; Sub 1256 1256 1230; Sub 1442 1442 1408].
Definition casadi_f0_114 : list instruction := [
  Sub 1412 1412 1387; Add 1442 1442 1412; Add 1256 1256 1442; Add 1451 1451 1256; Add 1456 1456 1451;
  Mul 1456 540 1456; Mul 1464 625 1187; Sub 1456 1456 1464; Mul 1464 651 1196; Sub 1384 1384 1374;
  Add 1388 1388 1363; Add 1351 1351 1364; Add 1350 1350 1323; Add 1347 1347 1071; Add 1350 1350 1347;
  Add 1351 1351 1350; Add 1388 1388 1351; Add 1384 1384 1388; Mul 1384 544 1384; Add 1464 1464 1384;
  Add 1456 1456 1464; Sub 1101 1101 1456; Mul 1101 0 1101; Mul 1456 23 1622; Add 1101 1101 1456;
  Mul 1278 508 1278; Mul 1456 534 1205; Add 1278 1278 1456; Add 1103 1103 1318; Mul 1533 482 1533;
  Mul 1206 511 1206; Add 1533 1533 1206; Sub 1103 1103 1533; Add 1223 1223 1103; Mul 1377 490 1377;
  Mul 1628 514 1628; Add 1377 1377 1628; Sub 1223 1223 1377; Add 1215 1215 1223; Mul 1423 498 1423;
  Mul 1352 518 1352; Add 1423 1423 1352; Sub 1215 1215 1423; Add 1236 1236 1215; Mul 1106 522 1106;
  Mul 1172 506 1172; Sub 1106 1106 1172; Sub 1236 1236 1106; Mul 1106 526 1236; Mul 1172 784 1607;
  Add 1106 1106 1172; Add 1359 1359 1315; Mul 1233 1304 1233; Add 1574 1574 1233; Mul 1574 20 1574;
  Add 1359 1359 1574; Add 1284 1284 1359; Mul 1088 1153 1088; Add 1634 1634 1088; Mul 1634 37 1634;
  Add 1284 1284 1634; Add 1163 1163 1284; Mul 1135 1212 1135; Add 1399 1399 1135; Mul 1399 80 1399;
  Add 1163 1163 1399; Add 1340 1340 1163; Mul 1527 1293 1527; Add 1540 1540 1527; Mul 1540 100 1540;
  Sub 1340 1340 1540; Mul 1340 536 1340; Mul 1540 496 1275; Add 1340 1340 1540; Add 1106 1106 1340;
  Sub 1278 1278 1106; Mul 1106 546 1277; Mul 1340 538 1142; Add 1106 1106 1340; Mul 1340 791 1267;
  Mul 1546 215 1546; Mul 1540 222 1112; Add 1546 1546 1540; Mul 1552 216 1552; Mul 1540 229 1084;
  Sub 1552 1552 1540; Sub 1546 1546 1552; Mul 1552 540 1191; Mul 1540 227 1187; Sub 1552 1552 1540;
  Mul 1540 544 1202; Mul 1399 219 1196; Add 1540 1540 1399; Sub 1552 1552 1540; Add 1546 1546 1552;
  Mul 1552 526 1234; Mul 1540 543 1607; Add 1552 1552 1540; Mul 1267 536 1267; Mul 1540 537 1275;
  Add 1267 1267 1540; Sub 1552 1552 1267; Sub 1552 1546 1552; Mul 1552 141 1552; Mul 1267 537 1552;
  Add 1340 1340 1267; Sub 1106 1106 1340; Add 1278 1278 1106; Mul 1106 556 1119; Mul 1587 560 1587;
  Add 1340 1106 1587; Sub 1578 1340 1578; Sub 1017 1333 1017; Sub 1585 1610 1585; Add 1017 1017 1585;
  Add 1587 1587 1106; Sub 1109 1109 1587; Add 1017 1017 1109; Sub 1578 1578 1017; Mul 1017 570 1483;
  Mul 1271 574 1271; Add 1109 1017 1271; Sub 1444 1109 1444; Sub 1514 1514 1157; Sub 1572 1572 1604;
  Add 1514 1514 1572; Add 1271 1271 1017; Sub 1327 1327 1271; Add 1514 1514 1327; Sub 1444 1444 1514;
  Mul 1514 584 1353; Mul 1402 588 1402; Add 1327 1514 1402; Sub 1307 1327 1307; Sub 1320 1320 1203;
  Sub 1563 1563 1584; Add 1320 1320 1563; Add 1402 1402 1514; Sub 1253 1253 1402; Add 1320 1320 1253;
  Sub 1307 1307 1320; Mul 1320 597 1105; Mul 1566 601 1566; Add 1253 1320 1566; Sub 1562 1253 1562;
  Sub 1162 1162 1245; Sub 1519 1519 1582; Add 1162 1162 1519; Add 1566 1566 1320].
Definition casadi_f0_115 : list instruction := [
  Sub 1542 1542 1566; Add 1162 1162 1542; Sub 1562 1562 1162; Mul 1162 610 1595; Mul 1355 614 1355;
  Add 1542 1162 1355; Sub 1370 1542 1370; Sub 1332 1332 1168; Sub 1617 1617 1529; Add 1332 1332 1617;
  Add 1355 1355 1162; Sub 1310 1310 1355; Add 1332 1332 1310; Sub 1370 1370 1332; Add 1562 1562 1370;
  Add 1307 1307 1562; Add 1444 1444 1307; Add 1578 1578 1444; Mul 1578 216 1578; Mul 1332 251 1084;
  Sub 1578 1578 1332; Mul 1332 230 1590; Mul 1512 225 1512; Add 1310 1332 1512; Mul 1252 231 1252;
  Mul 1162 223 1121; Sub 1252 1252 1162; Sub 1310 1310 1252; Mul 1200 560 1200; Mul 1162 553 1119;
  Add 1617 1200 1162; Mul 1601 244 1601; Mul 1091 248 1091; Add 1529 1601 1091; Sub 1617 1617 1529;
  Sub 1310 1310 1617; Mul 1119 558 1119; Mul 1151 560 1151; Add 1617 1119 1151; Mul 1565 243 1565;
  Mul 1558 249 1558; Add 1529 1565 1558; Sub 1617 1617 1529; Add 1310 1310 1617; Mul 1280 219 1280;
  Mul 1202 239 1202; Add 1280 1280 1202; Mul 1432 227 1432; Mul 1191 246 1191; Add 1432 1432 1191;
  Add 1280 1280 1432; Mul 1518 467 1518; Mul 1123 525 1123; Sub 1518 1518 1123; Add 1280 1280 1518;
  Mul 1438 231 1438; Mul 1518 559 1121; Sub 1438 1438 1518; Mul 1518 616 1590; Mul 1283 225 1283;
  Add 1518 1518 1283; Add 1438 1438 1518; Add 1280 1280 1438; Mul 1280 213 1280; Sub 1310 1310 1280;
  Mul 1438 572 1483; Mul 1235 574 1235; Add 1518 1438 1235; Mul 1608 284 1608; Mul 1182 258 1182;
  Add 1283 1608 1182; Sub 1518 1518 1283; Mul 1283 297 1274; Mul 1123 271 1537; Add 1432 1283 1123;
  Mul 1191 282 1401; Mul 1202 300 1424; Add 1617 1191 1202; Add 1432 1432 1617; Mul 1496 574 1496;
  Mul 1483 567 1483; Add 1617 1496 1483; Mul 1257 279 1257; Mul 1624 276 1624; Add 1529 1257 1624;
  Sub 1617 1617 1529; Add 1432 1432 1617; Sub 1518 1518 1432; Mul 1515 255 1515; Mul 1432 280 1270;
  Add 1515 1515 1432; Mul 1093 278 1093; Mul 1432 266 1625; Add 1093 1093 1432; Add 1515 1515 1093;
  Mul 1279 296 1279; Mul 1561 472 1561; Add 1279 1279 1561; Add 1515 1515 1279; Mul 1279 573 1424;
  Mul 1192 282 1192; Add 1279 1279 1192; Mul 1192 617 1274; Mul 1497 271 1497; Add 1192 1192 1497;
  Sub 1279 1279 1192; Add 1515 1515 1279; Mul 1515 213 1515; Sub 1518 1518 1515; Mul 1279 586 1353;
  Mul 1185 588 1185; Add 1192 1279 1185; Mul 1485 338 1485; Mul 1616 312 1616; Add 1497 1485 1616;
  Sub 1192 1192 1497; Mul 1497 351 1576; Mul 1561 325 1308; Add 1093 1497 1561; Mul 1432 336 1528;
  Mul 1617 354 1019; Add 1529 1432 1617; Add 1093 1093 1529; Mul 1131 588 1131; Mul 1353 581 1353;
  Add 1529 1131 1353; Mul 1539 333 1539; Mul 1311 330 1311; Add 1168 1539 1311; Sub 1529 1529 1168;
  Add 1093 1093 1529; Sub 1192 1192 1093; Mul 1094 309 1094; Mul 1093 334 1282; Add 1094 1094 1093;
  Mul 1523 332 1523; Mul 1093 320 1400; Add 1523 1523 1093; Add 1094 1094 1523; Mul 1409 349 1409;
  Mul 1597 474 1597; Add 1409 1409 1597; Add 1094 1094 1409; Mul 1409 587 1019; Mul 1372 336 1372;
  Add 1409 1409 1372; Mul 1372 619 1576; Mul 1481 325 1481; Add 1372 1372 1481].
Definition casadi_f0_116 : list instruction := [
  Sub 1409 1409 1372; Add 1094 1094 1409; Mul 1094 213 1094; Sub 1192 1192 1094; Mul 1409 599 1105;
  Mul 1122 601 1122; Add 1372 1409 1122; Mul 1378 393 1378; Mul 1146 366 1146; Add 1481 1378 1146;
  Sub 1372 1372 1481; Mul 1481 406 1564; Mul 1597 381 1287; Add 1523 1481 1597; Mul 1093 391 1159;
  Mul 1529 409 1269; Add 1168 1093 1529; Add 1523 1523 1168; Mul 1117 601 1117; Mul 1105 594 1105;
  Add 1168 1117 1105; Mul 1128 388 1128; Mul 1314 385 1314; Add 1320 1128 1314; Sub 1168 1168 1320;
  Add 1523 1523 1168; Sub 1372 1372 1523; Mul 1525 363 1525; Mul 1523 389 1228; Add 1525 1525 1523;
  Mul 1526 387 1526; Mul 1523 374 1295; Add 1526 1526 1523; Add 1525 1525 1526; Mul 1140 405 1140;
  Mul 1633 476 1633; Add 1140 1140 1633; Add 1525 1525 1140; Mul 1140 600 1269; Mul 1297 391 1297;
  Add 1140 1140 1297; Mul 1297 621 1564; Mul 1473 381 1473; Add 1297 1297 1473; Sub 1140 1140 1297;
  Add 1525 1525 1140; Mul 1525 213 1525; Sub 1372 1372 1525; Mul 1140 612 1595; Mul 1603 614 1603;
  Add 1297 1140 1603; Mul 1581 447 1581; Mul 1303 420 1303; Add 1473 1581 1303; Sub 1297 1297 1473;
  Mul 1473 460 1448; Mul 1633 434 1213; Add 1526 1473 1633; Mul 1523 445 1161; Mul 1168 463 1321;
  Add 1320 1523 1168; Add 1526 1526 1320; Mul 1575 614 1575; Mul 1595 607 1595; Add 1320 1575 1595;
  Mul 1583 442 1583; Mul 1317 439 1317; Add 1519 1583 1317; Sub 1320 1320 1519; Add 1526 1526 1320;
  Sub 1297 1297 1526; Mul 1526 417 1469; Mul 1320 443 1319; Add 1526 1526 1320; Mul 1320 441 1538;
  Mul 1519 426 1300; Add 1320 1320 1519; Add 1526 1526 1320; Mul 1320 459 1556; Mul 1251 478 1251;
  Add 1320 1320 1251; Add 1526 1526 1320; Mul 1320 611 1321; Mul 1450 445 1450; Add 1320 1320 1450;
  Mul 1450 623 1448; Mul 1462 434 1462; Add 1450 1450 1462; Sub 1320 1320 1450; Add 1526 1526 1320;
  Mul 1526 213 1526; Sub 1297 1297 1526; Add 1372 1372 1297; Add 1192 1192 1372; Add 1518 1518 1192;
  Add 1310 1310 1518; Mul 1310 215 1310; Mul 1320 470 1112; Add 1310 1310 1320; Sub 1578 1578 1310;
  Mul 1310 225 1108; Mul 1320 624 1590; Add 1450 1310 1320; Mul 1462 231 1176; Mul 1251 650 1121;
  Sub 1462 1462 1251; Sub 1450 1450 1462; Mul 1276 213 1276; Add 1251 1450 1276; Mul 1424 655 1424;
  Mul 1393 282 1393; Add 1519 1424 1393; Sub 1519 1618 1519; Mul 1466 271 1466; Mul 1274 629 1274;
  Add 1582 1466 1274; Add 1519 1519 1582; Mul 1407 213 1407; Sub 1582 1519 1407; Mul 1019 659 1019;
  Mul 1362 336 1362; Add 1245 1019 1362; Sub 1245 1171 1245; Mul 1452 325 1452; Mul 1576 634 1576;
  Add 1514 1452 1576; Add 1245 1245 1514; Mul 1457 213 1457; Sub 1514 1245 1457; Mul 1269 663 1269;
  Mul 1096 391 1096; Add 1563 1269 1096; Sub 1563 1169 1563; Mul 1435 381 1435; Mul 1564 639 1564;
  Add 1584 1435 1564; Add 1563 1563 1584; Mul 1302 213 1302; Sub 1584 1563 1302; Mul 1203 667 1321;
  Mul 1051 445 1051; Add 1017 1203 1051; Sub 1017 1648 1017; Mul 1410 434 1410; Mul 1572 644 1448;
  Add 1604 1410 1572; Add 1017 1017 1604; Mul 1141 213 1141; Sub 1604 1017 1141].
Definition casadi_f0_117 : list instruction := [
  Add 1584 1584 1604; Add 1514 1514 1584; Add 1582 1582 1514; Add 1251 1251 1582; Mul 1251 540 1251;
  Mul 1157 250 1187; Sub 1251 1251 1157; Mul 1176 225 1176; Mul 1590 650 1590; Add 1157 1176 1590;
  Mul 1108 231 1108; Mul 1121 624 1121; Sub 1108 1108 1121; Add 1590 1590 1176; Mul 1461 242 1461;
  Mul 1580 626 1580; Sub 1461 1461 1580; Add 1580 1590 1461; Add 1176 1108 1580; Sub 1176 1157 1176;
  Add 1157 1157 1461; Add 1108 1108 1157; Sub 1590 1590 1108; Sub 1176 1176 1590; Sub 1646 1646 1255;
  Sub 1025 1025 1631; Sub 1646 1646 1025; Sub 1650 1650 1647; Sub 1651 1651 1643; Sub 1650 1650 1651;
  Sub 1655 1655 1653; Sub 1656 1656 1026; Sub 1655 1655 1656; Sub 1661 1661 1659; Sub 1662 1662 1658;
  Sub 1661 1661 1662; Add 1655 1655 1661; Add 1650 1650 1655; Add 1646 1646 1650; Add 1176 1176 1646;
  Mul 1662 544 1176; Mul 1658 806 1196; Add 1662 1662 1658; Add 1251 1251 1662; Sub 1578 1578 1251;
  Add 1278 1278 1578; Mul 1278 216 1278; Mul 1578 652 1084; Sub 1278 1278 1578; Mul 1578 804 1112;
  Mul 1137 508 1137; Mul 1251 521 1205; Add 1137 1137 1251; Add 1635 1635 1233; Mul 1635 20 1635;
  Add 1329 1329 1598; Sub 1635 1635 1329; Sub 1150 1635 1150; Add 1326 1326 1088; Mul 1326 37 1326;
  Add 1150 1150 1326; Sub 1208 1150 1208; Add 1167 1167 1135; Mul 1167 80 1167; Add 1208 1208 1167;
  Add 1104 1104 1208; Sub 1545 1545 1527; Mul 1545 100 1545; Add 1104 1104 1545; Mul 1104 526 1104;
  Mul 1545 499 1607; Add 1104 1104 1545; Mul 1236 536 1236; Mul 1545 784 1275; Add 1236 1236 1545;
  Add 1104 1104 1236; Sub 1137 1137 1104; Mul 1234 791 1234; Mul 1552 543 1552; Add 1234 1234 1552;
  Mul 1277 539 1277; Mul 1552 538 1129; Add 1277 1277 1552; Sub 1234 1234 1277; Add 1137 1137 1234;
  Add 1512 1512 1332; Sub 1512 1512 1252; Add 1558 1558 1565; Add 1151 1151 1119; Sub 1558 1558 1151;
  Sub 1512 1512 1558; Add 1091 1091 1601; Add 1162 1162 1200; Sub 1091 1091 1162; Add 1512 1512 1091;
  Add 1512 1512 1280; Add 1624 1624 1257; Add 1483 1483 1496; Sub 1624 1624 1483; Add 1202 1202 1191;
  Add 1123 1123 1283; Add 1202 1202 1123; Add 1182 1182 1608; Add 1235 1235 1438; Sub 1182 1182 1235;
  Add 1202 1202 1182; Sub 1624 1624 1202; Add 1624 1624 1515; Add 1311 1311 1539; Add 1353 1353 1131;
  Sub 1311 1311 1353; Add 1617 1617 1432; Add 1561 1561 1497; Add 1617 1617 1561; Add 1616 1616 1485;
  Add 1185 1185 1279; Sub 1616 1616 1185; Add 1617 1617 1616; Sub 1311 1311 1617; Add 1311 1311 1094;
  Add 1314 1314 1128; Add 1105 1105 1117; Sub 1314 1314 1105; Add 1529 1529 1093; Add 1597 1597 1481;
  Add 1529 1529 1597; Add 1146 1146 1378; Add 1122 1122 1409; Sub 1146 1146 1122; Add 1529 1529 1146;
  Sub 1314 1314 1529; Add 1314 1314 1525; Add 1317 1317 1583; Add 1595 1595 1575; Sub 1317 1317 1595;
  Add 1168 1168 1523; Add 1633 1633 1473; Add 1168 1168 1633; Add 1303 1303 1581; Add 1603 1603 1140;
  Sub 1303 1303 1603; Add 1168 1168 1303; Sub 1317 1317 1168; Add 1317 1317 1526; Add 1314 1314 1317;
  Add 1311 1311 1314; Add 1624 1624 1311; Add 1512 1512 1624; Mul 1512 216 1512].
Definition casadi_f0_118 : list instruction := [
  Mul 1526 507 1084; Sub 1512 1512 1526; Add 1610 1610 1333; Sub 1587 1587 1268; Sub 1610 1610 1587;
  Sub 1243 1243 1340; Add 1610 1610 1243; Add 1127 1127 1259; Sub 1271 1271 1174; Sub 1127 1127 1271;
  Sub 1573 1573 1109; Add 1127 1127 1573; Add 1189 1189 1361; Sub 1402 1402 1571; Sub 1189 1189 1402;
  Sub 1577 1577 1327; Add 1189 1189 1577; Add 1322 1322 1517; Sub 1566 1566 1524; Sub 1322 1322 1566;
  Sub 1544 1544 1253; Add 1322 1322 1544; Add 1641 1641 1166; Sub 1355 1355 1373; Sub 1641 1641 1355;
  Sub 1225 1225 1542; Add 1641 1641 1225; Add 1322 1322 1641; Add 1189 1189 1322; Add 1127 1127 1189;
  Add 1610 1610 1127; Mul 1610 215 1610; Mul 1225 226 1112; Add 1610 1610 1225; Sub 1512 1512 1610;
  Sub 1157 1157 1580; Sub 1549 1549 1447; Sub 1426 1426 1422; Sub 1266 1266 1413; Sub 1654 1654 1416;
  Add 1266 1266 1654; Add 1426 1426 1266; Add 1549 1549 1426; Add 1157 1157 1549; Mul 1416 540 1157;
  Mul 1413 805 1187; Sub 1416 1416 1413; Add 1320 1320 1310; Sub 1462 1462 1320; Sub 1320 1462 1276;
  Add 1393 1393 1424; Add 1274 1274 1466; Add 1618 1618 1274; Sub 1393 1393 1618; Add 1618 1393 1407;
  Add 1362 1362 1019; Add 1576 1576 1452; Add 1171 1171 1576; Sub 1362 1362 1171; Add 1171 1362 1457;
  Add 1096 1096 1269; Add 1564 1564 1435; Add 1169 1169 1564; Sub 1096 1096 1169; Add 1169 1096 1302;
  Add 1051 1051 1203; Add 1572 1572 1410; Add 1648 1648 1572; Sub 1051 1051 1648; Add 1648 1051 1141;
  Add 1169 1169 1648; Add 1171 1171 1169; Add 1618 1618 1171; Add 1320 1320 1618; Mul 1320 544 1320;
  Mul 1572 693 1196; Add 1320 1320 1572; Add 1416 1416 1320; Sub 1512 1512 1416; Add 1137 1137 1512;
  Mul 1137 215 1137; Add 1578 1578 1137; Sub 1278 1278 1578; Sub 1450 1450 1276; Add 1519 1519 1407;
  Add 1245 1245 1457; Add 1563 1563 1302; Add 1017 1017 1141; Add 1563 1563 1017; Add 1245 1245 1563;
  Add 1519 1519 1245; Add 1450 1450 1519; Mul 1450 216 1450; Mul 1578 305 1084; Sub 1450 1450 1578;
  Mul 1157 215 1157; Mul 1578 805 1112; Add 1157 1157 1578; Sub 1450 1450 1157; Add 1142 1142 1450;
  Mul 1142 540 1142; Mul 1450 307 1187; Sub 1142 1142 1450; Mul 1450 360 1196; Mul 1176 216 1176;
  Mul 1157 806 1084; Sub 1176 1176 1157; Add 1462 1462 1276; Sub 1393 1393 1407; Sub 1362 1362 1457;
  Sub 1096 1096 1302; Sub 1051 1051 1141; Add 1096 1096 1051; Add 1362 1362 1096; Add 1393 1393 1362;
  Add 1462 1462 1393; Mul 1462 215 1462; Mul 1141 700 1112; Add 1462 1462 1141; Sub 1176 1176 1462;
  Add 1129 1129 1176; Mul 1129 544 1129; Add 1450 1450 1129; Add 1142 1142 1450; Sub 1278 1278 1142;
  Mul 1278 1 1278; Mul 1142 469 1087; Add 1278 1278 1142; Add 1101 1101 1278; Mul 1278 602 1215;
  Mul 1142 783 1124; Add 1278 1278 1142; Mul 1142 670 1163; Mul 1450 488 1386; Add 1142 1142 1450;
  Add 1278 1278 1142; Mul 1142 671 1102; Mul 1450 532 1467; Add 1142 1142 1450; Sub 1278 1278 1142;
  Mul 1142 679 1536; Mul 1450 523 1541; Add 1142 1142 1450; Mul 1450 796 1209; Mul 1270 680 1270;
  Mul 1129 255 1052; Add 1270 1270 1129; Mul 1625 674 1625; Mul 1129 278 1642].
Definition casadi_f0_119 : list instruction := [
  Sub 1625 1625 1129; Sub 1270 1270 1625; Mul 1495 216 1495; Mul 1625 294 1084; Sub 1495 1495 1625;
  Mul 1239 215 1239; Mul 1625 299 1112; Add 1239 1239 1625; Add 1495 1495 1239; Sub 1270 1270 1495;
  Mul 1495 670 1209; Mul 1239 502 1386; Add 1495 1495 1239; Mul 1239 602 1313; Mul 1625 505 1124;
  Add 1239 1239 1625; Sub 1495 1495 1239; Sub 1495 1270 1495; Mul 1495 672 1495; Mul 1239 502 1495;
  Add 1450 1450 1239; Sub 1142 1142 1450; Add 1278 1278 1142; Mul 1142 674 1582; Mul 1450 794 1642;
  Sub 1142 1142 1450; Mul 1450 680 1646; Mul 1239 689 1052; Add 1625 1450 1239; Add 1180 1180 1173;
  Add 1395 1395 1392; Add 1537 1537 1395; Sub 1180 1180 1537; Add 1537 1180 1363; Add 1360 1360 1130;
  Add 1134 1134 1116; Add 1308 1308 1134; Sub 1360 1360 1308; Add 1308 1360 1364; Add 1371 1371 1368;
  Add 1339 1339 1113; Add 1287 1287 1339; Sub 1371 1371 1287; Add 1287 1371 1323; Add 1344 1344 1345;
  Add 1640 1640 1022; Add 1213 1213 1640; Sub 1344 1344 1213; Add 1213 1344 1071; Add 1287 1287 1213;
  Add 1308 1308 1287; Add 1537 1537 1308; Mul 1537 676 1537; Mul 1640 410 1441; Add 1537 1537 1640;
  Sub 1625 1625 1537; Add 1142 1142 1625; Mul 1625 215 1518; Mul 1537 461 1112; Add 1625 1625 1537;
  Mul 1444 216 1444; Mul 1537 277 1084; Sub 1444 1444 1537; Sub 1625 1625 1444; Add 1142 1142 1625;
  Add 1278 1278 1142; Mul 1278 216 1278; Mul 1142 707 1084; Sub 1278 1278 1142; Mul 1142 793 1112;
  Mul 1625 602 1208; Mul 1537 491 1124; Add 1625 1625 1537; Mul 1537 670 1215; Mul 1640 783 1386;
  Add 1537 1537 1640; Add 1625 1625 1537; Mul 1537 671 1183; Mul 1640 517 1467; Add 1537 1537 1640;
  Sub 1625 1625 1537; Mul 1537 796 1313; Mul 1640 505 1495; Add 1537 1537 1640; Mul 1640 675 1536;
  Mul 1022 523 1627; Add 1640 1640 1022; Sub 1537 1537 1640; Add 1625 1625 1537; Mul 1537 674 1549;
  Mul 1640 682 1642; Sub 1537 1537 1640; Mul 1640 680 1618; Mul 1022 808 1052; Add 1640 1640 1022;
  Add 1454 1454 1356; Sub 1401 1401 1454; Add 1335 1335 1449; Add 1401 1401 1335; Sub 1335 1401 1337;
  Add 1436 1436 1455; Sub 1528 1528 1436; Add 1433 1433 1431; Add 1528 1528 1433; Sub 1433 1528 1230;
  Add 1439 1439 1440; Sub 1159 1159 1439; Add 1216 1216 1411; Add 1159 1159 1216; Sub 1216 1159 1408;
  Add 1403 1403 1156; Sub 1161 1161 1403; Add 1419 1419 1417; Add 1161 1161 1419; Sub 1419 1161 1387;
  Add 1216 1216 1419; Add 1433 1433 1216; Add 1335 1335 1433; Mul 1335 676 1335; Mul 1417 301 1441;
  Add 1335 1335 1417; Sub 1640 1640 1335; Add 1640 1537 1640; Mul 1127 215 1127; Mul 1335 303 1112;
  Add 1417 1127 1335; Mul 1403 216 1624; Mul 1156 468 1084; Sub 1403 1403 1156; Sub 1417 1417 1403;
  Add 1640 1640 1417; Add 1625 1625 1640; Mul 1625 215 1625; Add 1142 1142 1625; Sub 1625 1278 1142;
  Mul 1549 215 1549; Mul 1640 682 1112; Add 1417 1549 1640; Mul 1403 216 1519; Mul 1156 792 1084;
  Sub 1403 1403 1156; Sub 1417 1417 1403; Add 1541 1541 1417; Mul 1417 540 1541; Mul 1403 233 1187;
  Sub 1417 1417 1403; Mul 1403 789 1196; Mul 1156 215 1393; Mul 1411 686 1112].
Definition casadi_f0_120 : list instruction := [
  Add 1156 1156 1411; Mul 1646 216 1646; Mul 1411 689 1084; Sub 1646 1646 1411; Sub 1156 1156 1646;
  Add 1627 1627 1156; Mul 1156 544 1627; Add 1403 1403 1156; Add 1417 1417 1403; Sub 1625 1625 1417;
  Mul 1625 2 1625; Mul 1417 285 1620; Add 1625 1625 1417; Add 1101 1101 1625; Mul 1625 677 1115;
  Mul 1417 530 1425; Add 1625 1625 1417; Mul 1417 706 1223; Mul 1403 782 1219; Add 1417 1417 1403;
  Mul 1403 712 1284; Mul 1156 481 1365; Add 1403 1403 1156; Add 1417 1417 1403; Sub 1625 1625 1417;
  Mul 1417 719 1513; Mul 1403 519 1199; Add 1417 1417 1403; Mul 1403 709 1509; Mul 1188 216 1188;
  Mul 1156 348 1084; Sub 1188 1188 1156; Mul 1376 215 1376; Mul 1156 353 1112; Add 1376 1376 1156;
  Add 1188 1188 1376; Mul 1400 714 1400; Mul 1376 332 1664; Add 1400 1400 1376; Mul 1282 718 1282;
  Mul 1376 309 1224; Add 1282 1282 1376; Sub 1400 1400 1282; Add 1188 1188 1400; Mul 1400 706 1375;
  Mul 1282 497 1219; Add 1400 1400 1282; Mul 1282 712 1509; Mul 1376 494 1365; Add 1282 1282 1376;
  Sub 1400 1400 1282; Sub 1400 1188 1400; Mul 1400 156 1400; Mul 1282 494 1400; Add 1403 1403 1282;
  Sub 1417 1417 1403; Add 1625 1625 1417; Mul 1417 716 1308; Mul 1403 403 1210; Add 1417 1417 1403;
  Mul 1403 718 1650; Mul 1282 696 1224; Add 1376 1403 1282; Sub 1417 1417 1376; Mul 1376 714 1514;
  Mul 1156 797 1664; Add 1376 1376 1156; Sub 1417 1417 1376; Mul 1307 216 1307; Mul 1376 331 1084;
  Sub 1307 1307 1376; Mul 1376 215 1192; Mul 1156 414 1112; Add 1376 1376 1156; Sub 1376 1307 1376;
  Add 1417 1417 1376; Add 1625 1625 1417; Mul 1625 216 1625; Mul 1417 790 1084; Sub 1625 1625 1417;
  Mul 1417 704 1112; Mul 1376 677 1531; Mul 1156 513 1425; Add 1376 1376 1156; Mul 1156 706 1150;
  Mul 1411 483 1219; Add 1156 1156 1411; Mul 1411 712 1223; Mul 1439 782 1365; Add 1411 1411 1439;
  Add 1156 1156 1411; Sub 1376 1376 1156; Mul 1156 709 1375; Mul 1411 497 1400; Add 1156 1156 1411;
  Mul 1411 711 1513; Mul 1439 519 1443; Add 1411 1411 1439; Sub 1156 1156 1411; Add 1376 1376 1156;
  Mul 1156 716 1433; Mul 1411 293 1210; Add 1156 1156 1411; Mul 1411 718 1171; Mul 1439 415 1224;
  Add 1411 1411 1439; Sub 1156 1156 1411; Mul 1411 714 1426; Mul 1439 685 1664; Add 1440 1411 1439;
  Sub 1156 1156 1440; Mul 1440 216 1311; Mul 1431 416 1084; Sub 1440 1440 1431; Mul 1189 215 1189;
  Mul 1431 357 1112; Add 1436 1189 1431; Sub 1440 1440 1436; Add 1156 1156 1440; Add 1376 1376 1156;
  Mul 1376 215 1376; Add 1417 1417 1376; Sub 1376 1625 1417; Mul 1156 216 1245; Mul 1440 795 1084;
  Sub 1156 1156 1440; Mul 1426 215 1426; Mul 1440 685 1112; Add 1436 1426 1440; Sub 1156 1156 1436;
  Add 1199 1199 1156; Mul 1156 540 1199; Mul 1436 697 1187; Sub 1156 1156 1436; Mul 1436 695 1196;
  Mul 1650 216 1650; Mul 1455 696 1084; Sub 1650 1650 1455; Mul 1455 215 1362; Mul 1449 448 1112;
  Add 1455 1455 1449; Sub 1455 1650 1455; Add 1443 1443 1455; Mul 1455 544 1443; Add 1436 1436 1455;
  Add 1156 1156 1436; Sub 1156 1376 1156; Mul 1156 3 1156; Mul 1436 691 1218].
Definition casadi_f0_121 : list instruction := [
  Add 1156 1156 1436; Add 1101 1101 1156; Mul 1156 715 1103; Mul 1436 606 1649; Add 1156 1156 1436;
  Mul 1436 721 1359; Mul 1455 786 1499; Add 1436 1436 1455; Add 1156 1156 1436; Mul 1436 722 1018;
  Mul 1455 528 1427; Add 1436 1436 1455; Add 1156 1156 1436; Mul 1436 730 1522; Mul 1455 515 1668;
  Add 1436 1436 1455; Mul 1455 683 1594; Mul 1592 310 1592; Mul 1449 408 1421; Add 1592 1592 1449;
  Mul 1579 327 1579; Mul 1449 404 1242; Add 1579 1579 1449; Sub 1592 1592 1579; Mul 1228 731 1228;
  Mul 1579 363 1291; Add 1228 1228 1579; Mul 1295 725 1295; Mul 1579 387 1666; Add 1295 1295 1579;
  Sub 1228 1228 1295; Add 1592 1592 1228; Mul 1228 721 1594; Mul 1295 486 1499; Add 1228 1228 1295;
  Mul 1295 715 1599; Mul 1579 489 1649; Add 1295 1295 1579; Sub 1228 1228 1295; Sub 1228 1592 1228;
  Mul 1228 723 1228; Mul 1295 486 1228; Add 1455 1455 1295; Sub 1436 1436 1455; Add 1156 1156 1436;
  Mul 1436 725 1584; Mul 1455 800 1666; Add 1436 1436 1455; Mul 1455 731 1655; Mul 1295 703 1291;
  Add 1579 1455 1295; Mul 1449 727 1287; Mul 1454 306 1535; Add 1449 1449 1454; Add 1579 1579 1449;
  Add 1436 1436 1579; Mul 1579 310 1372; Mul 1449 361 1421; Add 1579 1579 1449; Mul 1562 327 1562;
  Mul 1449 386 1242; Add 1454 1562 1449; Mul 1356 318 1346; Mul 1022 59 1229; Add 1356 1356 1022;
  Add 1454 1454 1356; Add 1579 1579 1454; Sub 1436 1436 1579; Add 1156 1156 1436; Mul 1436 216 1156;
  Mul 1579 690 1084; Sub 1436 1436 1579; Mul 1579 807 1112; Mul 1454 715 1635; Mul 1356 705 1649;
  Add 1454 1454 1356; Mul 1356 721 1103; Mul 1022 606 1499; Add 1356 1356 1022; Add 1454 1454 1356;
  Mul 1356 722 1222; Mul 1022 510 1427; Add 1356 1356 1022; Add 1454 1454 1356; Mul 1356 683 1599;
  Mul 1022 489 1228; Add 1356 1356 1022; Mul 1022 726 1522; Mul 1345 515 1602; Add 1022 1022 1345;
  Sub 1356 1356 1022; Add 1454 1454 1356; Mul 1356 725 1266; Mul 1022 692 1666; Add 1345 1356 1022;
  Mul 1339 731 1169; Mul 1113 465 1291; Add 1339 1339 1113; Mul 1113 727 1216; Mul 1368 785 1535;
  Add 1113 1113 1368; Add 1339 1339 1113; Add 1345 1345 1339; Mul 1322 310 1322; Mul 1339 412 1421;
  Add 1113 1322 1339; Mul 1368 327 1314; Mul 1134 407 1242; Add 1368 1368 1134; Mul 1134 318 1468;
  Mul 1116 580 1229; Add 1134 1134 1116; Add 1368 1368 1134; Add 1113 1113 1368; Sub 1345 1345 1113;
  Add 1454 1454 1345; Mul 1345 215 1454; Add 1579 1579 1345; Sub 1345 1436 1579; Mul 1266 310 1266;
  Mul 1113 692 1421; Add 1368 1266 1113; Mul 1134 327 1563; Mul 1116 798 1242; Add 1134 1134 1116;
  Mul 1116 318 1442; Mul 1130 640 1229; Add 1116 1116 1130; Add 1134 1134 1116; Add 1368 1368 1134;
  Sub 1668 1668 1368; Mul 1368 540 1668; Mul 1134 811 1187; Sub 1368 1368 1134; Mul 1134 813 1196;
  Mul 1116 310 1096; Mul 1130 464 1421; Add 1116 1116 1130; Mul 1655 327 1655; Mul 1130 703 1242;
  Add 1395 1655 1130; Mul 1392 318 1350; Mul 1173 662 1229; Add 1392 1392 1173; Add 1395 1395 1392;
  Add 1116 1116 1395; Sub 1602 1602 1116; Mul 1116 544 1602; Add 1134 1134 1116].
Definition casadi_f0_122 : list instruction := [
  Add 1368 1368 1134; Sub 1368 1345 1368; Mul 1368 4 1368; Mul 1134 812 1030; Add 1368 1368 1134;
  Add 1101 1101 1368; Mul 1368 728 1318; Mul 1134 609 1667; Add 1368 1368 1134; Mul 1134 733 1315;
  Mul 1116 604 1672; Add 1134 1134 1116; Add 1368 1368 1134; Mul 1134 734 1538; Mul 1116 426 1673;
  Add 1134 1134 1116; Add 1368 1368 1134; Mul 1134 739 1559; Mul 1116 438 1645; Add 1134 1134 1116;
  Mul 1116 816 1321; Mul 1290 358 1290; Mul 1395 462 1482; Add 1290 1290 1395; Mul 1554 372 1554;
  Mul 1395 458 1198; Add 1554 1554 1395; Sub 1290 1290 1554; Mul 1319 741 1319; Mul 1554 417 1354;
  Add 1319 1319 1554; Mul 1300 736 1300; Mul 1554 441 1676; Add 1300 1300 1554; Sub 1319 1319 1300;
  Add 1290 1290 1319; Mul 1319 733 1321; Mul 1300 445 1672; Add 1319 1319 1300; Mul 1300 728 1448;
  Mul 1554 434 1667; Add 1300 1300 1554; Sub 1319 1319 1300; Sub 1290 1290 1319; Mul 1290 430 1290;
  Mul 1319 445 1290; Add 1116 1116 1319; Sub 1134 1134 1116; Add 1368 1368 1134; Mul 1134 736 1604;
  Mul 1116 803 1676; Add 1134 1134 1116; Mul 1116 741 1661; Mul 1319 710 1354; Add 1300 1116 1319;
  Mul 1554 738 1213; Mul 1395 356 1143; Add 1554 1554 1395; Add 1300 1300 1554; Add 1134 1134 1300;
  Mul 1300 358 1297; Mul 1554 352 1482; Add 1300 1300 1554; Mul 1370 372 1370; Mul 1554 440 1198;
  Add 1395 1370 1554; Mul 1392 369 1593; Mul 1173 36 1532; Add 1392 1392 1173; Add 1395 1395 1392;
  Add 1300 1300 1395; Sub 1134 1134 1300; Add 1368 1368 1134; Mul 1134 216 1368; Mul 1300 814 1084;
  Sub 1134 1134 1300; Mul 1300 817 1112; Mul 1667 13 1667; Mul 1395 728 1598; Sub 1667 1667 1395;
  Mul 1395 733 1318; Mul 1672 609 1672; Add 1395 1395 1672; Add 1667 1667 1395; Mul 1395 734 1469;
  Mul 1673 443 1673; Add 1395 1395 1673; Add 1667 1667 1395; Mul 1395 816 1448; Mul 1673 434 1290;
  Add 1395 1395 1673; Mul 1673 735 1559; Mul 1672 438 1674; Add 1673 1673 1672; Sub 1395 1395 1673;
  Add 1667 1667 1395; Mul 1395 736 1654; Mul 1673 699 1676; Add 1672 1395 1673; Mul 1392 741 1648;
  Mul 1173 394 1354; Add 1392 1392 1173; Mul 1173 738 1419; Mul 1129 245 1143; Add 1173 1173 1129;
  Add 1392 1392 1173; Add 1672 1672 1392; Mul 1641 358 1641; Mul 1392 466 1482; Add 1173 1641 1392;
  Mul 1129 372 1317; Mul 1176 359 1198; Add 1129 1129 1176; Mul 1176 369 1460; Mul 1462 593 1532;
  Add 1176 1176 1462; Add 1129 1129 1176; Add 1173 1173 1129; Sub 1672 1672 1173; Add 1667 1667 1672;
  Mul 1672 215 1667; Add 1300 1300 1672; Sub 1672 1134 1300; Mul 1654 358 1654; Mul 1173 699 1482;
  Add 1129 1654 1173; Mul 1176 372 1017; Mul 1462 801 1198; Add 1176 1176 1462; Mul 1462 369 1412;
  Mul 1141 645 1532; Add 1462 1462 1141; Add 1176 1176 1462; Add 1129 1129 1176; Sub 1645 1645 1129;
  Mul 1129 540 1645; Mul 1176 820 1187; Sub 1129 1129 1176; Mul 1176 822 1196; Mul 1462 358 1051;
  Mul 1141 457 1482; Add 1462 1462 1141; Mul 1661 372 1661; Mul 1141 710 1198; Add 1302 1661 1141;
  Mul 1457 369 1347; Mul 1407 666 1532; Add 1457 1457 1407; Add 1302 1302 1457].
Definition casadi_f0_123 : list instruction := [
  Add 1462 1462 1302; Sub 1674 1674 1462; Mul 1462 544 1674; Add 1176 1176 1462; Add 1129 1129 1176;
  Sub 1129 1672 1129; Mul 1129 5 1129; Mul 1176 821 1082; Add 1129 1129 1176; Add 1101 1101 1129;
  Mul 1685 85 1685; Mul 1681 79 1681; Sub 1685 1685 1681; Mul 1690 54 1690; Mul 1670 61 1670;
  Sub 1690 1690 1670; Mul 1698 19 1698; Mul 1670 763 1632; Sub 1698 1698 1670; Mul 1670 751 1042;
  Mul 1688 35 1688; Add 1670 1670 1688; Sub 1698 1698 1670; Mul 1701 55 1701; Mul 1687 62 1687;
  Sub 1701 1701 1687; Add 1698 1698 1701; Add 1690 1690 1698; Mul 1686 86 1686; Mul 1694 91 1694;
  Sub 1686 1686 1694; Add 1686 1690 1686; Add 1685 1685 1686; Mul 1081 102 1081; Sub 1081 1685 1081;
  Mul 1682 101 1682; Add 1081 1081 1682; Add 1101 1101 1081; Mul 1081 777 1101; Sub 1090 1090 1081;
  Add 1611 1611 1090; Div 1090 1055 92; Mul 1081 1023 1034; Sub 1090 1090 1081; Mul 1081 767 1090;
  Mul 1451 674 1451; Mul 1682 630 1642; Sub 1451 1451 1682; Mul 1682 654 1052; Mul 1388 680 1388;
  Add 1682 1682 1388; Add 1246 1246 1644; Sub 1682 1682 1246; Add 1451 1451 1682; Mul 1682 615 1112;
  Mul 1429 215 1429; Add 1682 1682 1429; Mul 1133 216 1133; Mul 1429 7 1084; Sub 1133 1133 1429;
  Sub 1682 1682 1133; Add 1451 1451 1682; Mul 1451 0 1451; Mul 1682 771 1622; Add 1451 1451 1682;
  Mul 1682 748 1175; Mul 1133 216 1536; Mul 1429 523 1084; Sub 1133 1133 1429; Add 1133 1642 1133;
  Mul 1133 672 1133; Mul 1429 545 1133; Sub 1682 1682 1429; Mul 1429 216 1209; Mul 1246 502 1084;
  Sub 1429 1429 1246; Mul 1246 215 1313; Mul 1644 505 1112; Add 1246 1246 1644; Add 1429 1429 1246;
  Sub 1429 1429 1441; Mul 1429 672 1429; Mul 1246 504 1429; Mul 1644 750 1546; Add 1246 1246 1644;
  Mul 1644 215 1536; Mul 1388 523 1112; Add 1644 1644 1388; Sub 1644 1052 1644; Mul 1644 672 1644;
  Mul 1388 541 1644; Mul 1686 627 1237; Add 1388 1388 1686; Sub 1246 1246 1388; Add 1682 1682 1246;
  Mul 1183 215 1183; Mul 1246 517 1112; Add 1183 1183 1246; Mul 1102 216 1102; Mul 1246 532 1084;
  Sub 1102 1102 1246; Sub 1183 1183 1102; Mul 1102 627 1209; Mul 1246 502 1644; Add 1102 1102 1246;
  Mul 1246 748 1313; Mul 1388 505 1133; Sub 1246 1246 1388; Sub 1102 1102 1246; Add 1183 1183 1102;
  Mul 1183 508 1183; Mul 1102 744 1205; Add 1183 1183 1102; Mul 1102 215 1215; Mul 1246 783 1112;
  Add 1102 1102 1246; Mul 1163 216 1163; Mul 1246 488 1084; Sub 1163 1163 1246; Sub 1102 1102 1163;
  Mul 1163 748 1536; Mul 1133 523 1133; Sub 1163 1163 1133; Mul 1209 750 1209; Mul 1133 502 1429;
  Add 1209 1209 1133; Sub 1163 1163 1209; Add 1102 1102 1163; Mul 1102 536 1102; Mul 1163 824 1275;
  Add 1102 1102 1163; Sub 1183 1183 1102; Mul 1208 215 1208; Mul 1102 491 1112; Add 1208 1208 1102;
  Mul 1215 216 1215; Mul 1102 783 1084; Sub 1215 1215 1102; Sub 1208 1208 1215; Mul 1313 750 1313;
  Mul 1429 505 1429; Add 1313 1313 1429; Mul 1536 627 1536; Mul 1644 523 1644; Add 1536 1536 1644;
  Sub 1313 1313 1536; Add 1208 1208 1313; Mul 1208 526 1208; Mul 1313 825 1607].
Definition casadi_f0_124 : list instruction := [
  Add 1208 1208 1313; Sub 1183 1183 1208; Add 1682 1682 1183; Mul 1519 674 1519; Mul 1183 792 1642;
  Sub 1519 1519 1183; Add 1239 1239 1450; Mul 1450 298 1441; Sub 1180 1180 1363; Sub 1360 1360 1364;
  Sub 1371 1371 1323; Sub 1344 1344 1071; Add 1371 1371 1344; Add 1360 1360 1371; Add 1180 1180 1360;
  Mul 1071 676 1180; Add 1450 1450 1071; Sub 1239 1239 1450; Add 1519 1519 1239; Mul 1239 468 1112;
  Mul 1624 215 1624; Add 1239 1239 1624; Sub 1239 1239 1444; Add 1519 1519 1239; Mul 1519 216 1519;
  Mul 1239 823 1084; Sub 1519 1519 1239; Mul 1239 686 1052; Mul 1393 680 1393; Add 1239 1239 1393;
  Mul 1393 232 1441; Add 1401 1401 1337; Add 1528 1528 1230; Add 1159 1159 1408; Add 1161 1161 1387;
  Add 1159 1159 1161; Add 1528 1528 1159; Add 1401 1401 1528; Mul 1387 676 1401; Add 1393 1393 1387;
  Sub 1239 1239 1393; Add 1537 1537 1239; Add 1335 1335 1127; Mul 1518 216 1518; Mul 1127 461 1084;
  Sub 1518 1518 1127; Sub 1335 1335 1518; Add 1537 1537 1335; Mul 1537 215 1537; Mul 1335 668 1112;
  Add 1537 1537 1335; Sub 1519 1519 1537; Add 1640 1640 1549; Mul 1582 216 1582; Mul 1549 794 1084;
  Sub 1582 1582 1549; Sub 1640 1640 1582; Mul 1640 540 1640; Mul 1582 664 1187; Sub 1640 1640 1582;
  Mul 1582 808 1112; Mul 1618 215 1618; Add 1582 1582 1618; Sub 1582 1582 1646; Mul 1582 544 1582;
  Mul 1646 642 1196; Add 1582 1582 1646; Add 1640 1640 1582; Sub 1519 1519 1640; Add 1682 1682 1519;
  Mul 1682 1 1682; Mul 1519 760 1087; Add 1682 1682 1519; Add 1451 1451 1682; Mul 1541 674 1541;
  Mul 1682 233 1642; Sub 1541 1541 1682; Mul 1682 789 1052; Mul 1627 680 1627; Add 1682 1682 1627;
  Mul 1627 637 1441; Mul 1401 215 1401; Mul 1519 232 1112; Add 1401 1401 1519; Mul 1180 216 1180;
  Mul 1519 298 1084; Sub 1180 1180 1519; Sub 1401 1401 1180; Add 1495 1495 1401; Mul 1495 676 1495;
  Add 1627 1627 1495; Sub 1682 1682 1627; Add 1541 1541 1682; Sub 1142 1142 1278; Add 1541 1541 1142;
  Mul 1541 2 1541; Mul 1142 826 1620; Add 1541 1541 1142; Add 1451 1451 1541; Mul 1541 674 1199;
  Mul 1142 697 1642; Sub 1541 1541 1142; Mul 1142 695 1052; Mul 1278 680 1443; Add 1142 1142 1278;
  Mul 1278 647 1441; Mul 1682 216 1360; Mul 1627 411 1084; Sub 1682 1682 1627; Mul 1627 215 1528;
  Mul 1495 302 1112; Add 1627 1627 1495; Sub 1682 1682 1627; Add 1400 1400 1682; Mul 1682 676 1400;
  Add 1278 1278 1682; Sub 1142 1142 1278; Add 1541 1541 1142; Sub 1417 1417 1625; Add 1541 1541 1417;
  Mul 1541 3 1541; Mul 1417 347 1218; Add 1541 1541 1417; Add 1451 1451 1541; Mul 1541 674 1668;
  Mul 1417 811 1642; Sub 1541 1541 1417; Mul 1417 813 1052; Mul 1625 680 1602; Add 1417 1417 1625;
  Mul 1625 802 1441; Mul 1142 310 1159; Mul 1278 252 1421; Add 1142 1142 1278; Mul 1278 327 1371;
  Mul 1682 339 1242; Add 1278 1278 1682; Mul 1657 318 1657; Mul 1682 701 1229; Add 1627 1657 1682;
  Add 1278 1278 1627; Add 1142 1142 1278; Sub 1228 1228 1142; Mul 1142 676 1228; Add 1625 1625 1142;
  Sub 1417 1417 1625; Add 1541 1541 1417; Sub 1579 1579 1436; Add 1541 1541 1579].
Definition casadi_f0_125 : list instruction := [
  Mul 1541 4 1541; Mul 1579 698 1030; Add 1541 1541 1579; Add 1451 1451 1541; Mul 1541 674 1645;
  Mul 1579 820 1642; Sub 1541 1541 1579; Mul 1579 822 1052; Mul 1436 680 1674; Add 1579 1579 1436;
  Mul 1436 788 1441; Mul 1417 358 1161; Mul 1625 234 1482; Add 1417 1417 1625; Mul 1625 372 1344;
  Mul 1142 355 1198; Add 1625 1625 1142; Mul 1663 369 1663; Mul 1142 708 1532; Add 1278 1663 1142;
  Add 1625 1625 1278; Add 1417 1417 1625; Sub 1290 1290 1417; Mul 1417 676 1290; Add 1436 1436 1417;
  Sub 1579 1579 1436; Add 1541 1541 1579; Sub 1300 1300 1134; Add 1541 1541 1300; Mul 1541 5 1541;
  Mul 1300 809 1082; Add 1541 1541 1300; Add 1451 1451 1541; Sub 1685 1685 1451; Mul 1451 778 1685;
  Add 1081 1081 1451; Sub 1611 1611 1081; Div 1081 1028 92; Mul 1451 1516 1034; Sub 1081 1081 1451;
  Mul 1451 775 1081; Add 1453 1453 1652; Mul 1652 658 1224; Mul 1351 718 1351; Add 1652 1652 1351;
  Sub 1453 1453 1652; Mul 1652 635 1664; Mul 1256 714 1256; Add 1652 1652 1256; Sub 1453 1453 1652;
  Mul 1126 216 1126; Mul 1652 90 1084; Sub 1126 1126 1652; Mul 1652 566 1112; Mul 1484 215 1484;
  Add 1652 1652 1484; Sub 1126 1126 1652; Add 1453 1453 1126; Mul 1453 0 1453; Mul 1126 818 1622;
  Add 1453 1453 1126; Mul 1126 216 1513; Mul 1652 519 1084; Sub 1126 1126 1652; Sub 1126 1126 1664;
  Mul 1126 156 1126; Mul 1652 545 1126; Mul 1484 684 1175; Add 1652 1652 1484; Mul 1484 216 1509;
  Mul 1256 494 1084; Sub 1484 1484 1256; Mul 1256 215 1375; Mul 1351 497 1112; Add 1256 1256 1351;
  Add 1484 1484 1256; Sub 1484 1210 1484; Mul 1484 156 1484; Mul 1256 504 1484; Mul 1351 660 1546;
  Add 1256 1256 1351; Mul 1351 215 1513; Mul 1541 519 1112; Add 1351 1351 1541; Sub 1351 1351 1224;
  Mul 1351 156 1351; Mul 1541 541 1351; Mul 1300 827 1237; Add 1541 1541 1300; Sub 1256 1256 1541;
  Add 1652 1652 1256; Mul 1115 216 1115; Mul 1256 530 1084; Sub 1115 1115 1256; Mul 1531 215 1531;
  Mul 1256 513 1112; Add 1531 1531 1256; Sub 1115 1115 1531; Mul 1531 827 1509; Mul 1256 494 1351;
  Add 1531 1531 1256; Mul 1256 684 1375; Mul 1541 497 1126; Add 1256 1256 1541; Sub 1531 1531 1256;
  Add 1115 1115 1531; Mul 1531 508 1115; Mul 1256 656 1205; Add 1531 1531 1256; Mul 1284 216 1284;
  Mul 1256 481 1084; Sub 1284 1284 1256; Mul 1256 215 1223; Mul 1541 782 1112; Add 1256 1256 1541;
  Sub 1284 1284 1256; Mul 1256 684 1513; Mul 1541 519 1126; Add 1256 1256 1541; Mul 1509 660 1509;
  Mul 1541 494 1484; Add 1509 1509 1541; Sub 1256 1256 1509; Add 1284 1284 1256; Mul 1256 536 1284;
  Mul 1509 829 1275; Add 1256 1256 1509; Sub 1531 1531 1256; Mul 1223 216 1223; Mul 1256 782 1084;
  Sub 1223 1223 1256; Mul 1150 215 1150; Mul 1256 483 1112; Add 1150 1150 1256; Sub 1223 1223 1150;
  Mul 1375 660 1375; Mul 1150 497 1484; Add 1375 1375 1150; Mul 1513 827 1513; Mul 1150 519 1351;
  Add 1513 1513 1150; Sub 1375 1375 1513; Add 1223 1223 1375; Mul 1375 526 1223; Mul 1513 830 1607;
  Add 1375 1375 1513; Sub 1531 1531 1375; Add 1652 1652 1531; Mul 1531 411 1210].
Definition casadi_f0_126 : list instruction := [
  Mul 1360 716 1360; Add 1531 1531 1360; Add 1282 1282 1403; Sub 1531 1531 1282; Mul 1282 795 1664;
  Mul 1245 714 1245; Add 1282 1282 1245; Sub 1531 1531 1282; Mul 1282 416 1112; Mul 1311 215 1311;
  Add 1282 1282 1311; Sub 1307 1307 1282; Add 1531 1531 1307; Mul 1531 216 1531; Mul 1307 828 1084;
  Sub 1531 1531 1307; Mul 1307 302 1210; Mul 1528 716 1528; Add 1307 1307 1528; Mul 1528 448 1224;
  Mul 1362 718 1362; Add 1528 1528 1362; Sub 1307 1307 1528; Add 1439 1439 1411; Sub 1307 1307 1439;
  Mul 1192 216 1192; Mul 1439 414 1084; Sub 1192 1192 1439; Add 1431 1431 1189; Sub 1192 1192 1431;
  Add 1307 1307 1192; Mul 1307 215 1307; Mul 1192 832 1112; Add 1307 1307 1192; Sub 1192 1531 1307;
  Mul 1514 216 1514; Mul 1431 797 1084; Sub 1514 1514 1431; Add 1440 1440 1426; Sub 1514 1514 1440;
  Mul 1440 540 1514; Mul 1426 835 1187; Sub 1440 1440 1426; Mul 1426 415 1112; Mul 1171 215 1171;
  Add 1426 1426 1171; Sub 1650 1650 1426; Mul 1426 544 1650; Mul 1171 837 1196; Add 1426 1426 1171;
  Add 1440 1440 1426; Sub 1192 1192 1440; Add 1652 1652 1192; Mul 1652 1 1652; Mul 1192 632 1087;
  Add 1652 1652 1192; Add 1453 1453 1652; Mul 1126 678 1126; Mul 1652 684 1132; Add 1126 1126 1652;
  Mul 1351 673 1351; Mul 1652 827 1265; Add 1351 1351 1652; Mul 1484 799 1484; Mul 1652 660 1270;
  Add 1484 1484 1652; Add 1351 1351 1484; Add 1126 1126 1351; Mul 1223 602 1223; Mul 1351 830 1124;
  Add 1223 1223 1351; Mul 1284 670 1284; Mul 1351 829 1386; Add 1284 1284 1351; Mul 1115 671 1115;
  Mul 1351 656 1467; Add 1115 1115 1351; Sub 1284 1284 1115; Add 1223 1223 1284; Add 1126 1126 1223;
  Mul 1514 674 1514; Mul 1223 835 1642; Sub 1514 1514 1223; Mul 1650 680 1650; Mul 1223 837 1052;
  Add 1650 1650 1223; Mul 1308 216 1308; Mul 1223 403 1084; Sub 1308 1308 1223; Mul 1223 293 1112;
  Mul 1433 215 1433; Add 1223 1223 1433; Sub 1308 1308 1223; Mul 1308 676 1308; Mul 1223 839 1441;
  Add 1308 1308 1223; Sub 1650 1650 1308; Add 1514 1514 1650; Sub 1307 1307 1531; Add 1514 1514 1307;
  Add 1126 1126 1514; Mul 1126 2 1126; Mul 1514 834 1620; Add 1126 1126 1514; Add 1453 1453 1126;
  Mul 1126 647 1210; Mul 1400 716 1400; Add 1126 1126 1400; Mul 1400 695 1224; Mul 1443 718 1443;
  Add 1400 1400 1443; Sub 1126 1126 1400; Mul 1400 697 1664; Mul 1199 714 1199; Add 1400 1400 1199;
  Sub 1126 1126 1400; Add 1126 1126 1376; Mul 1126 3 1126; Mul 1376 836 1218; Add 1126 1126 1376;
  Add 1453 1453 1126; Mul 1126 802 1210; Mul 1376 716 1228; Add 1126 1126 1376; Mul 1376 813 1224;
  Mul 1400 718 1602; Add 1376 1376 1400; Sub 1126 1126 1376; Mul 1376 811 1664; Mul 1400 714 1668;
  Add 1376 1376 1400; Sub 1126 1126 1376; Add 1126 1126 1345; Mul 1126 4 1126; Mul 1345 702 1030;
  Add 1126 1126 1345; Add 1453 1453 1126; Mul 1126 788 1210; Mul 1345 716 1290; Add 1126 1126 1345;
  Mul 1345 822 1224; Mul 1376 718 1674; Add 1345 1345 1376; Sub 1126 1126 1345; Mul 1345 820 1664;
  Mul 1376 714 1645; Add 1345 1345 1376; Sub 1126 1126 1345; Add 1126 1126 1672].
Definition casadi_f0_127 : list instruction := [
  Mul 1126 5 1126; Mul 1672 810 1082; Add 1126 1126 1672; Add 1453 1453 1126; Add 1453 1453 1690;
  Mul 1690 769 1453; Sub 1451 1451 1690; Add 1611 1611 1451; Div 1451 1020 92; Mul 1690 1637 1034;
  Sub 1451 1451 1690; Mul 1690 815 1451; Mul 1126 640 1666; Mul 1442 725 1442; Add 1126 1126 1442;
  Mul 1442 662 1291; Mul 1350 731 1350; Add 1442 1442 1350; Add 1190 1190 1669; Add 1442 1442 1190;
  Add 1126 1126 1442; Mul 1442 580 1421; Mul 1468 310 1468; Add 1442 1442 1468; Mul 1468 59 1242;
  Mul 1346 327 1346; Add 1468 1468 1346; Add 1671 1671 1144; Add 1468 1468 1671; Add 1442 1442 1468;
  Sub 1126 1126 1442; Mul 1126 0 1126; Mul 1442 819 1622; Add 1126 1126 1442; Mul 1442 327 1522;
  Mul 1468 515 1242; Add 1442 1442 1468; Mul 1468 318 1599; Mul 1671 489 1229; Add 1468 1468 1671;
  Sub 1442 1442 1468; Sub 1442 1666 1442; Mul 1442 723 1442; Mul 1468 545 1442; Mul 1671 831 1175;
  Add 1468 1468 1671; Mul 1671 310 1599; Mul 1144 489 1421; Add 1671 1671 1144; Mul 1144 327 1594;
  Mul 1346 486 1242; Add 1144 1144 1346; Sub 1671 1671 1144; Sub 1671 1535 1671; Mul 1671 723 1671;
  Mul 1144 504 1671; Mul 1346 840 1546; Add 1144 1144 1346; Mul 1346 318 1594; Mul 1190 486 1229;
  Add 1346 1346 1190; Mul 1190 310 1522; Mul 1669 515 1421; Add 1190 1190 1669; Sub 1346 1346 1190;
  Sub 1346 1291 1346; Mul 1346 723 1346; Mul 1190 541 1346; Mul 1669 842 1237; Add 1190 1190 1669;
  Sub 1144 1144 1190; Add 1468 1468 1144; Mul 1144 842 1594; Mul 1190 486 1346; Add 1144 1144 1190;
  Mul 1190 831 1599; Mul 1669 489 1442; Add 1190 1190 1669; Sub 1144 1144 1190; Mul 1190 310 1222;
  Mul 1669 510 1421; Add 1190 1190 1669; Mul 1669 327 1018; Mul 1350 528 1242; Add 1669 1669 1350;
  Add 1190 1190 1669; Mul 1520 318 1520; Mul 1669 479 1229; Add 1520 1520 1669; Add 1190 1190 1520;
  Sub 1144 1144 1190; Mul 1190 508 1144; Mul 1520 841 1205; Add 1190 1190 1520; Mul 1520 831 1522;
  Mul 1669 515 1442; Add 1520 1520 1669; Mul 1594 840 1594; Mul 1669 486 1671; Add 1594 1594 1669;
  Sub 1520 1520 1594; Mul 1594 310 1103; Mul 1669 606 1421; Add 1594 1594 1669; Mul 1359 327 1359;
  Mul 1669 786 1242; Add 1359 1359 1669; Add 1594 1594 1359; Mul 1018 318 1018; Mul 1359 528 1229;
  Add 1018 1018 1359; Add 1594 1594 1018; Sub 1520 1520 1594; Mul 1594 536 1520; Mul 1018 844 1275;
  Add 1594 1594 1018; Sub 1190 1190 1594; Mul 1599 840 1599; Mul 1594 489 1671; Add 1599 1599 1594;
  Mul 1522 842 1522; Mul 1594 515 1346; Add 1522 1522 1594; Sub 1599 1599 1522; Mul 1635 310 1635;
  Mul 1522 705 1421; Add 1635 1635 1522; Mul 1103 327 1103; Mul 1522 606 1242; Add 1103 1103 1522;
  Add 1635 1635 1103; Mul 1222 318 1222; Mul 1103 510 1229; Add 1222 1222 1103; Add 1635 1635 1222;
  Sub 1599 1599 1635; Mul 1635 526 1599; Mul 1222 845 1607; Add 1635 1635 1222; Sub 1190 1190 1635;
  Add 1468 1468 1190; Add 1113 1113 1266; Mul 1266 800 1242; Mul 1584 327 1584; Add 1266 1266 1584;
  Mul 1584 643 1229; Mul 1398 318 1398; Add 1584 1584 1398; Add 1266 1266 1584].
Definition casadi_f0_128 : list instruction := [
  Add 1113 1113 1266; Mul 1266 540 1113; Mul 1584 843 1187; Sub 1266 1266 1584; Mul 1584 465 1421;
  Mul 1169 310 1169; Add 1584 1584 1169; Add 1130 1130 1655; Mul 1655 665 1229; Mul 1341 318 1341;
  Add 1655 1655 1341; Add 1130 1130 1655; Add 1584 1584 1130; Mul 1130 544 1584; Mul 1655 847 1196;
  Add 1130 1130 1655; Add 1266 1266 1130; Mul 1130 798 1666; Mul 1563 725 1563; Add 1130 1130 1563;
  Add 1295 1295 1455; Mul 1455 339 1535; Mul 1371 727 1371; Add 1455 1455 1371; Add 1295 1295 1455;
  Add 1130 1130 1295; Mul 1295 407 1421; Mul 1314 310 1314; Add 1295 1295 1314; Add 1449 1449 1562;
  Mul 1562 595 1229; Mul 1338 318 1338; Add 1562 1562 1338; Add 1449 1449 1562; Add 1295 1295 1449;
  Sub 1130 1130 1295; Mul 1130 216 1130; Mul 1295 848 1084; Sub 1130 1130 1295; Add 1022 1022 1356;
  Mul 1356 464 1291; Mul 1096 731 1096; Add 1356 1356 1096; Mul 1096 252 1535; Mul 1159 727 1159;
  Add 1096 1096 1159; Add 1356 1356 1096; Add 1022 1022 1356; Add 1339 1339 1322; Mul 1322 361 1242;
  Mul 1372 327 1372; Add 1322 1322 1372; Mul 1372 620 1229; Mul 1488 318 1488; Add 1372 1372 1488;
  Add 1322 1322 1372; Add 1339 1339 1322; Sub 1022 1022 1339; Mul 1022 215 1022; Mul 1339 850 1112;
  Add 1022 1022 1339; Sub 1339 1130 1022; Add 1266 1266 1339; Add 1468 1468 1266; Mul 1468 1 1468;
  Mul 1266 838 1087; Add 1468 1468 1266; Add 1126 1126 1468; Mul 1468 678 1442; Mul 1266 831 1132;
  Add 1468 1468 1266; Mul 1266 673 1346; Mul 1322 842 1265; Add 1266 1266 1322; Mul 1322 799 1671;
  Mul 1372 840 1270; Add 1322 1322 1372; Add 1266 1266 1322; Add 1468 1468 1266; Mul 1266 602 1599;
  Mul 1322 845 1124; Add 1266 1266 1322; Mul 1322 670 1520; Mul 1372 844 1386; Add 1322 1322 1372;
  Mul 1372 671 1144; Mul 1488 841 1467; Add 1372 1372 1488; Sub 1322 1322 1372; Add 1266 1266 1322;
  Add 1468 1468 1266; Mul 1266 785 1421; Mul 1216 310 1216; Add 1266 1266 1216; Mul 1216 306 1242;
  Mul 1287 327 1287; Add 1216 1216 1287; Add 1682 1682 1657; Add 1216 1216 1682; Add 1266 1266 1216;
  Mul 1216 676 1266; Mul 1682 853 1441; Add 1216 1216 1682; Mul 1682 680 1584; Mul 1657 847 1052;
  Add 1682 1682 1657; Sub 1216 1216 1682; Mul 1682 674 1113; Mul 1657 843 1642; Sub 1682 1682 1657;
  Sub 1216 1216 1682; Sub 1022 1022 1130; Add 1216 1216 1022; Add 1468 1468 1216; Mul 1468 2 1468;
  Mul 1216 846 1620; Add 1468 1468 1216; Add 1126 1126 1468; Mul 1442 717 1442; Mul 1468 831 1665;
  Add 1442 1442 1468; Mul 1671 787 1671; Mul 1468 840 1188; Add 1671 1671 1468; Mul 1346 713 1346;
  Mul 1468 842 1660; Add 1346 1346 1468; Sub 1671 1671 1346; Add 1442 1442 1671; Mul 1144 677 1144;
  Mul 1671 841 1425; Add 1144 1144 1671; Mul 1520 712 1520; Mul 1671 844 1365; Add 1520 1520 1671;
  Sub 1144 1144 1520; Mul 1599 706 1599; Mul 1520 845 1219; Add 1599 1599 1520; Sub 1144 1144 1599;
  Add 1442 1442 1144; Mul 1113 714 1113; Mul 1144 843 1664; Add 1113 1113 1144; Mul 1584 718 1584;
  Mul 1144 847 1224; Add 1584 1584 1144; Mul 1266 716 1266; Mul 1144 853 1210].
Definition casadi_f0_129 : list instruction := [
  Add 1266 1266 1144; Sub 1584 1584 1266; Add 1113 1113 1584; Add 1113 1113 1339; Add 1442 1442 1113;
  Mul 1442 3 1442; Mul 1113 854 1218; Add 1442 1442 1113; Add 1126 1126 1442; Mul 1442 811 1666;
  Mul 1668 725 1668; Add 1442 1442 1668; Mul 1668 813 1291; Mul 1602 731 1602; Add 1668 1668 1602;
  Mul 1602 802 1535; Mul 1228 727 1228; Add 1602 1602 1228; Add 1668 1668 1602; Add 1442 1442 1668;
  Mul 1668 807 1421; Mul 1454 310 1454; Add 1668 1668 1454; Mul 1454 690 1242; Mul 1156 327 1156;
  Add 1454 1454 1156; Mul 1156 720 1229; Mul 1154 318 1154; Add 1156 1156 1154; Add 1454 1454 1156;
  Add 1668 1668 1454; Sub 1442 1442 1668; Mul 1442 4 1442; Mul 1668 851 1030; Add 1442 1442 1668;
  Add 1126 1126 1442; Mul 1442 820 1666; Mul 1668 725 1645; Add 1442 1442 1668; Mul 1668 822 1291;
  Mul 1454 731 1674; Add 1668 1668 1454; Mul 1454 788 1535; Mul 1156 727 1290; Add 1454 1454 1156;
  Add 1668 1668 1454; Add 1442 1442 1668; Mul 1668 817 1421; Mul 1454 310 1667; Add 1668 1668 1454;
  Mul 1454 814 1242; Mul 1156 327 1368; Add 1454 1454 1156; Mul 1156 732 1229; Mul 1154 318 1164;
  Add 1156 1156 1154; Add 1454 1454 1156; Add 1668 1668 1454; Sub 1442 1442 1668; Mul 1442 5 1442;
  Mul 1668 852 1082; Add 1442 1442 1668; Add 1126 1126 1442; Sub 1691 1691 1126; Mul 1126 761 1691;
  Add 1690 1690 1126; Add 1611 1611 1690; Div 1690 1385 92; Mul 1126 1619 1034; Sub 1690 1690 1126;
  Mul 1126 833 1690; Mul 1442 645 1676; Mul 1412 736 1412; Add 1442 1442 1412; Mul 1412 666 1354;
  Mul 1347 741 1347; Add 1412 1412 1347; Add 1678 1678 1677; Add 1412 1412 1678; Add 1442 1442 1412;
  Mul 1412 593 1482; Mul 1460 358 1460; Add 1412 1412 1460; Mul 1460 36 1198; Mul 1593 372 1593;
  Add 1460 1460 1593; Add 1679 1679 1555; Add 1460 1460 1679; Add 1412 1412 1460; Sub 1442 1442 1412;
  Mul 1412 0 1442; Mul 1622 849 1622; Add 1412 1412 1622; Mul 1622 372 1559; Mul 1460 438 1198;
  Add 1622 1622 1460; Mul 1460 369 1448; Mul 1679 434 1532; Add 1460 1460 1679; Sub 1622 1622 1460;
  Sub 1622 1676 1622; Mul 1622 430 1622; Mul 1460 545 1622; Mul 1175 856 1175; Add 1460 1460 1175;
  Mul 1175 358 1448; Mul 1679 434 1482; Add 1175 1175 1679; Mul 1679 372 1321; Mul 1555 445 1198;
  Add 1679 1679 1555; Sub 1175 1175 1679; Sub 1175 1143 1175; Mul 1175 430 1175; Mul 1679 504 1175;
  Mul 1546 858 1546; Add 1679 1679 1546; Mul 1546 369 1321; Mul 1555 445 1532; Add 1546 1546 1555;
  Mul 1555 358 1559; Mul 1593 438 1482; Add 1555 1555 1593; Sub 1546 1546 1555; Sub 1546 1354 1546;
  Mul 1546 430 1546; Mul 1555 541 1546; Mul 1237 860 1237; Add 1555 1555 1237; Sub 1679 1679 1555;
  Add 1460 1460 1679; Mul 1679 860 1321; Mul 1555 445 1546; Add 1679 1679 1555; Mul 1555 856 1448;
  Mul 1237 434 1622; Add 1555 1555 1237; Sub 1679 1679 1555; Mul 1555 358 1469; Mul 1237 443 1482;
  Add 1555 1555 1237; Mul 1237 372 1538; Mul 1593 426 1198; Add 1237 1237 1593; Add 1555 1555 1237;
  Mul 1556 369 1556; Mul 1237 478 1532; Add 1556 1556 1237; Add 1555 1555 1556].
Definition casadi_f0_130 : list instruction := [
  Sub 1679 1679 1555; Mul 1555 508 1679; Mul 1205 859 1205; Add 1555 1555 1205; Mul 1205 856 1559;
  Mul 1556 438 1622; Add 1205 1205 1556; Mul 1321 858 1321; Mul 1556 445 1175; Add 1321 1321 1556;
  Sub 1205 1205 1321; Mul 1321 358 1318; Mul 1556 609 1482; Add 1321 1321 1556; Mul 1315 372 1315;
  Mul 1556 604 1198; Add 1315 1315 1556; Add 1321 1321 1315; Mul 1538 369 1538; Mul 1315 426 1532;
  Add 1538 1538 1315; Add 1321 1321 1538; Sub 1205 1205 1321; Mul 1321 536 1205; Mul 1275 862 1275;
  Add 1321 1321 1275; Sub 1555 1555 1321; Mul 1448 858 1448; Mul 1321 434 1175; Add 1448 1448 1321;
  Mul 1559 860 1559; Mul 1321 438 1546; Add 1559 1559 1321; Sub 1448 1448 1559; Mul 1559 13 1482;
  Mul 1598 358 1598; Sub 1559 1559 1598; Mul 1318 372 1318; Mul 1598 609 1198; Add 1318 1318 1598;
  Add 1559 1559 1318; Mul 1469 369 1469; Mul 1318 443 1532; Add 1469 1469 1318; Add 1559 1559 1469;
  Sub 1448 1448 1559; Mul 1559 526 1448; Mul 1607 863 1607; Add 1559 1559 1607; Sub 1555 1555 1559;
  Add 1460 1460 1555; Add 1173 1173 1654; Mul 1654 803 1198; Mul 1604 372 1604; Add 1654 1654 1604;
  Mul 1604 648 1532; Mul 1389 369 1389; Add 1604 1604 1389; Add 1654 1654 1604; Add 1173 1173 1654;
  Mul 1654 540 1173; Mul 1187 861 1187; Sub 1654 1654 1187; Mul 1187 394 1482; Mul 1648 358 1648;
  Add 1187 1187 1648; Add 1141 1141 1661; Mul 1661 669 1532; Mul 1636 369 1636; Add 1661 1661 1636;
  Add 1141 1141 1661; Add 1187 1187 1141; Mul 1141 544 1187; Mul 1196 865 1196; Add 1141 1141 1196;
  Add 1654 1654 1141; Mul 1141 801 1676; Mul 1017 736 1017; Add 1141 1141 1017; Add 1319 1319 1116;
  Mul 1116 355 1143; Mul 1344 738 1344; Add 1116 1116 1344; Add 1319 1319 1116; Add 1141 1141 1319;
  Mul 1319 359 1482; Mul 1317 358 1317; Add 1319 1319 1317; Add 1554 1554 1370; Mul 1370 608 1532;
  Mul 1309 369 1309; Add 1370 1370 1309; Add 1554 1554 1370; Add 1319 1319 1554; Sub 1141 1141 1319;
  Mul 1319 216 1141; Mul 1084 866 1084; Sub 1319 1319 1084; Add 1673 1673 1395; Mul 1395 457 1354;
  Mul 1051 741 1051; Add 1395 1395 1051; Mul 1051 234 1143; Mul 1161 738 1161; Add 1051 1051 1161;
  Add 1395 1395 1051; Add 1673 1673 1395; Add 1392 1392 1641; Mul 1641 352 1198; Mul 1297 372 1297;
  Add 1641 1641 1297; Mul 1297 622 1532; Mul 1474 369 1474; Add 1297 1297 1474; Add 1641 1641 1297;
  Add 1392 1392 1641; Sub 1673 1673 1392; Mul 1392 215 1673; Mul 1112 868 1112; Add 1392 1392 1112;
  Sub 1112 1319 1392; Add 1654 1654 1112; Add 1460 1460 1654; Mul 1460 1 1460; Mul 1087 857 1087;
  Add 1460 1460 1087; Add 1412 1412 1460; Mul 1460 678 1622; Mul 1132 856 1132; Add 1460 1460 1132;
  Mul 1132 673 1546; Mul 1265 860 1265; Add 1132 1132 1265; Mul 1265 799 1175; Mul 1270 858 1270;
  Add 1265 1265 1270; Add 1132 1132 1265; Add 1460 1460 1132; Mul 1132 602 1448; Mul 1124 863 1124;
  Add 1132 1132 1124; Mul 1124 670 1205; Mul 1386 862 1386; Add 1124 1124 1386; Mul 1386 671 1679;
  Mul 1467 859 1467; Add 1386 1386 1467; Sub 1124 1124 1386; Add 1132 1132 1124].
Definition casadi_f0_131 : list instruction := [
  Add 1460 1460 1132; Mul 1132 245 1482; Mul 1419 358 1419; Add 1132 1132 1419; Mul 1419 356 1198;
  Mul 1213 372 1213; Add 1419 1419 1213; Add 1142 1142 1663; Add 1419 1419 1142; Add 1132 1132 1419;
  Mul 1419 676 1132; Mul 1441 871 1441; Add 1419 1419 1441; Mul 1441 680 1187; Mul 1052 865 1052;
  Add 1441 1441 1052; Sub 1419 1419 1441; Mul 1441 674 1173; Mul 1642 861 1642; Sub 1441 1441 1642;
  Sub 1419 1419 1441; Sub 1392 1392 1319; Add 1419 1419 1392; Add 1460 1460 1419; Mul 1460 2 1460;
  Mul 1620 864 1620; Add 1460 1460 1620; Add 1412 1412 1460; Mul 1460 717 1622; Mul 1665 856 1665;
  Add 1460 1460 1665; Mul 1665 787 1175; Mul 1188 858 1188; Add 1665 1665 1188; Mul 1188 713 1546;
  Mul 1660 860 1660; Add 1188 1188 1660; Sub 1665 1665 1188; Add 1460 1460 1665; Mul 1665 677 1679;
  Mul 1425 859 1425; Add 1665 1665 1425; Mul 1425 712 1205; Mul 1365 862 1365; Add 1425 1425 1365;
  Sub 1665 1665 1425; Mul 1425 706 1448; Mul 1219 863 1219; Add 1425 1425 1219; Sub 1665 1665 1425;
  Add 1460 1460 1665; Mul 1665 714 1173; Mul 1664 861 1664; Add 1665 1665 1664; Mul 1664 718 1187;
  Mul 1224 865 1224; Add 1664 1664 1224; Mul 1224 716 1132; Mul 1210 871 1210; Add 1224 1224 1210;
  Sub 1664 1664 1224; Add 1665 1665 1664; Add 1665 1665 1112; Add 1460 1460 1665; Mul 1460 3 1460;
  Mul 1218 872 1218; Add 1460 1460 1218; Add 1412 1412 1460; Mul 1622 729 1622; Mul 1586 856 1586;
  Add 1622 1622 1586; Mul 1546 724 1546; Mul 1369 860 1369; Add 1546 1546 1369; Mul 1175 688 1175;
  Mul 1592 858 1592; Add 1175 1175 1592; Add 1546 1546 1175; Add 1622 1622 1546; Mul 1448 715 1448;
  Mul 1649 863 1649; Add 1448 1448 1649; Mul 1205 721 1205; Mul 1499 862 1499; Add 1205 1205 1499;
  Mul 1679 722 1679; Mul 1427 859 1427; Add 1679 1679 1427; Add 1205 1205 1679; Add 1448 1448 1205;
  Add 1622 1622 1448; Mul 1173 725 1173; Mul 1666 861 1666; Add 1173 1173 1666; Mul 1187 731 1187;
  Mul 1291 865 1291; Add 1187 1187 1291; Mul 1132 727 1132; Mul 1535 871 1535; Add 1132 1132 1535;
  Add 1187 1187 1132; Add 1173 1173 1187; Mul 1673 310 1673; Mul 1421 868 1421; Add 1673 1673 1421;
  Mul 1141 327 1141; Mul 1242 866 1242; Add 1141 1141 1242; Mul 1442 318 1442; Mul 1229 849 1229;
  Add 1442 1442 1229; Add 1141 1141 1442; Add 1673 1673 1141; Add 1173 1173 1673; Sub 1622 1622 1173;
  Mul 1622 4 1622; Mul 1030 869 1030; Add 1622 1622 1030; Add 1412 1412 1622; Mul 1676 820 1676;
  Mul 1645 736 1645; Add 1676 1676 1645; Mul 1354 822 1354; Mul 1674 741 1674; Add 1354 1354 1674;
  Mul 1143 788 1143; Mul 1290 738 1290; Add 1143 1143 1290; Add 1354 1354 1143; Add 1676 1676 1354;
  Mul 1482 817 1482; Mul 1667 358 1667; Add 1482 1482 1667; Mul 1198 814 1198; Mul 1368 372 1368;
  Add 1198 1198 1368; Mul 1532 732 1532; Mul 1164 369 1164; Add 1532 1532 1164; Add 1198 1198 1532;
  Add 1482 1482 1198; Sub 1676 1676 1482; Mul 1676 5 1676; Mul 1082 870 1082; Add 1676 1676 1082;
  Add 1412 1412 1676; Sub 1692 1692 1412; Mul 1412 754 1692; Add 1126 1126 1412].
Definition casadi_f0_132 : list instruction := [
  Add 1611 1611 1126; Mul 1126 210 1385; Mul 1412 200 1074; Add 1126 1126 1412; Mul 1508 19 1508;
  Mul 1412 196 1632; Sub 1508 1508 1412; Mul 1412 189 1042; Mul 1612 35 1612; Sub 1412 1412 1612;
  Sub 1508 1508 1412; Mul 1459 55 1459; Mul 1038 62 1038; Add 1459 1459 1038; Add 1508 1508 1459;
  Mul 1186 86 1186; Mul 1560 91 1560; Add 1186 1186 1560; Add 1186 1508 1186; Mul 1048 102 1048;
  Sub 1048 1186 1048; Mul 1560 777 1048; Mul 1459 209 1675; Add 1560 1560 1459; Add 1126 1126 1560;
  Mul 1560 778 1186; Mul 1459 867 1090; Add 1560 1560 1459; Add 1126 1126 1560; Mul 1560 769 1508;
  Mul 1459 855 1081; Add 1560 1560 1459; Add 1126 1126 1560; Mul 1560 761 1181; Mul 1459 201 1451;
  Add 1560 1560 1459; Sub 1126 1126 1560; Mul 1560 873 1690; Add 1126 1126 1560; Mul 1560 1006 1126;
  Mul 1459 210 1126; Mul 1038 756 1074; Add 1459 1459 1038; Sub 1385 1385 1459; Mul 1459 881 1385;
  Mul 1038 210 1568; Mul 1412 143 1074; Add 1038 1038 1412; Sub 1049 1049 1089; Sub 1047 1047 1086;
  Mul 1047 37 1047; Add 1049 1049 1047; Sub 1037 1037 1232; Mul 1037 80 1037; Add 1037 1049 1037;
  Sub 1077 1077 1148; Mul 1077 100 1077; Add 1077 1037 1077; Mul 1076 1064 1076; Mul 1036 1061 1036;
  Add 1076 1076 1036; Mul 1076 141 1076; Add 1077 1077 1076; Mul 1076 777 1077; Mul 1036 876 1675;
  Add 1076 1076 1036; Add 1038 1038 1076; Mul 1621 151 1621; Mul 1075 103 1075; Add 1621 1621 1075;
  Mul 1035 148 1035; Mul 1079 105 1079; Add 1035 1035 1079; Sub 1621 1621 1035; Sub 1621 1621 1037;
  Mul 1024 102 1024; Sub 1024 1621 1024; Mul 1037 778 1024; Mul 1035 153 1090; Add 1037 1037 1035;
  Sub 1038 1038 1037; Mul 1543 1057 1543; Mul 1032 1065 1032; Sub 1543 1543 1032; Mul 1543 156 1543;
  Add 1049 1049 1543; Mul 1521 86 1521; Mul 1349 91 1349; Sub 1521 1521 1349; Add 1521 1049 1521;
  Mul 1638 102 1638; Sub 1638 1521 1638; Mul 1349 769 1638; Mul 1543 171 1081; Add 1349 1349 1543;
  Add 1038 1038 1349; Mul 1042 180 1042; Mul 1211 35 1211; Add 1042 1042 1211; Mul 1083 19 1083;
  Mul 1632 182 1632; Sub 1083 1083 1632; Sub 1042 1042 1083; Mul 1053 55 1053; Add 1042 1042 1053;
  Mul 1639 86 1639; Mul 1098 91 1098; Add 1639 1639 1098; Add 1639 1042 1639; Mul 1240 102 1240;
  Sub 1240 1639 1240; Mul 1098 761 1240; Mul 1053 188 1451; Add 1098 1098 1053; Add 1038 1038 1098;
  Mul 1098 754 1048; Mul 1053 209 1690; Add 1098 1098 1053; Add 1038 1038 1098; Mul 1098 210 1038;
  Mul 1053 875 1074; Add 1098 1098 1053; Sub 1568 1568 1098; Div 1098 1568 65; Mul 1568 89 1568;
  Mul 1053 777 1038; Mul 1083 875 1675; Add 1053 1053 1083; Sub 1077 1077 1053; Mul 1053 58 1077;
  Add 1568 1568 1053; Mul 1053 778 1038; Mul 1083 875 1090; Add 1053 1053 1083; Add 1053 1024 1053;
  Mul 1083 45 1053; Add 1568 1568 1083; Mul 1083 769 1038; Mul 1632 875 1081; Add 1083 1083 1632;
  Sub 1083 1638 1083; Mul 1632 22 1083; Add 1568 1568 1632; Mul 1632 761 1038; Mul 1211 875 1451;
  Add 1632 1632 1211; Sub 1632 1240 1632; Mul 1211 879 1632; Add 1568 1568 1211].
Definition casadi_f0_133 : list instruction := [
  Mul 1211 754 1038; Mul 1349 875 1690; Add 1211 1211 1349; Sub 1211 1048 1211; Mul 1349 880 1211;
  Add 1568 1568 1349; Div 1568 1568 1045; Mul 1349 1078 1568; Sub 1098 1098 1349; Mul 1349 874 1098;
  Add 1459 1459 1349; Mul 1349 777 1126; Mul 1543 756 1675; Add 1349 1349 1543; Sub 1048 1048 1349;
  Mul 1349 884 1048; Div 1077 1077 65; Mul 1543 1029 1568; Sub 1077 1077 1543; Mul 1543 883 1077;
  Add 1349 1349 1543; Add 1459 1459 1349; Mul 1349 778 1126; Mul 1543 756 1090; Add 1349 1349 1543;
  Sub 1349 1349 1186; Mul 1543 886 1349; Div 1053 1053 65; Mul 1032 1063 1568; Sub 1053 1053 1032;
  Mul 1032 885 1053; Add 1543 1543 1032; Add 1459 1459 1543; Mul 1543 769 1126; Mul 1032 756 1081;
  Add 1543 1543 1032; Sub 1543 1508 1543; Mul 1032 888 1543; Div 1083 1083 65; Mul 1037 1040 1568;
  Sub 1083 1083 1037; Mul 1037 887 1083; Add 1032 1032 1037; Add 1459 1459 1032; Mul 1032 761 1126;
  Mul 1037 756 1451; Add 1032 1032 1037; Add 1032 1181 1032; Mul 1037 890 1032; Div 1632 1632 65;
  Mul 1035 1027 1568; Sub 1632 1632 1035; Mul 1035 889 1632; Add 1037 1037 1035; Sub 1459 1459 1037;
  Div 1211 1211 65; Mul 1037 1046 1568; Sub 1211 1211 1037; Mul 1037 891 1211; Mul 1126 754 1126;
  Mul 1035 756 1690; Add 1126 1126 1035; Mul 1035 892 1126; Sub 1037 1037 1035; Add 1459 1459 1037;
  Mul 1037 881 1459; Mul 1035 882 1098; Add 1037 1037 1035; Sub 1385 1385 1037; Mul 1037 884 1459;
  Mul 1035 882 1077; Add 1037 1037 1035; Sub 1048 1048 1037; Mul 1037 910 1048; Mul 1035 777 1024;
  Mul 1079 153 1675; Add 1035 1035 1079; Mul 1079 210 1055; Mul 1075 154 1074; Add 1079 1079 1075;
  Sub 1035 1035 1079; Mul 1079 778 1621; Mul 1075 106 1090; Add 1079 1079 1075; Add 1035 1035 1079;
  Mul 1079 769 1521; Mul 1075 877 1081; Add 1079 1079 1075; Sub 1035 1035 1079; Mul 1079 761 1639;
  Mul 1075 94 1451; Add 1079 1079 1075; Sub 1035 1035 1079; Mul 1079 754 1186; Mul 1075 867 1690;
  Add 1079 1079 1075; Sub 1035 1035 1079; Mul 1079 777 1035; Mul 1075 895 1675; Add 1079 1079 1075;
  Sub 1024 1024 1079; Mul 1079 884 1024; Mul 1075 896 1077; Add 1079 1079 1075; Mul 1075 210 1035;
  Mul 1076 895 1074; Add 1075 1075 1076; Add 1055 1055 1075; Mul 1075 881 1055; Mul 1076 898 1098;
  Add 1075 1075 1076; Sub 1079 1079 1075; Mul 1075 778 1035; Mul 1076 895 1090; Add 1075 1075 1076;
  Sub 1075 1075 1621; Mul 1621 886 1075; Mul 1076 899 1053; Add 1621 1621 1076; Add 1079 1079 1621;
  Mul 1621 769 1035; Mul 1076 895 1081; Add 1621 1621 1076; Add 1621 1521 1621; Mul 1076 888 1621;
  Mul 1036 900 1083; Add 1076 1076 1036; Sub 1079 1079 1076; Mul 1076 761 1035; Mul 1036 895 1451;
  Add 1076 1076 1036; Add 1076 1639 1076; Mul 1036 890 1076; Mul 1148 901 1632; Add 1036 1036 1148;
  Sub 1079 1079 1036; Mul 1036 754 1035; Mul 1148 895 1690; Add 1036 1036 1148; Add 1186 1186 1036;
  Mul 1036 892 1186; Mul 1148 902 1211; Add 1036 1036 1148; Sub 1079 1079 1036; Mul 1036 884 1079;
  Mul 1148 897 1077; Add 1036 1036 1148; Sub 1024 1024 1036; Div 1036 1024 905].
Definition casadi_f0_134 : list instruction := [
  Mul 1148 881 1079; Mul 1232 897 1098; Add 1148 1148 1232; Add 1055 1055 1148; Mul 1148 904 1055;
  Mul 1024 903 1024; Add 1148 1148 1024; Mul 1024 886 1079; Mul 1232 897 1053; Add 1024 1024 1232;
  Sub 1075 1075 1024; Mul 1024 906 1075; Add 1148 1148 1024; Mul 1024 888 1079; Mul 1232 897 1083;
  Add 1024 1024 1232; Add 1621 1621 1024; Mul 1024 907 1621; Add 1148 1148 1024; Mul 1024 890 1079;
  Mul 1232 897 1632; Add 1024 1024 1232; Add 1076 1076 1024; Mul 1024 908 1076; Add 1148 1148 1024;
  Mul 1024 892 1079; Mul 1232 897 1211; Add 1024 1024 1232; Add 1186 1186 1024; Mul 1024 909 1186;
  Add 1148 1148 1024; Div 1148 1148 1067; Mul 1024 1214 1148; Sub 1036 1036 1024; Mul 1024 894 1036;
  Add 1037 1037 1024; Mul 1024 912 1385; Div 1055 1055 905; Mul 1232 1614 1148; Sub 1055 1055 1232;
  Mul 1232 893 1055; Add 1024 1024 1232; Sub 1037 1037 1024; Mul 1024 886 1459; Mul 1232 882 1053;
  Add 1024 1024 1232; Sub 1349 1349 1024; Mul 1024 914 1349; Div 1075 1075 905; Mul 1232 1273 1148;
  Sub 1075 1075 1232; Mul 1232 913 1075; Add 1024 1024 1232; Add 1037 1037 1024; Mul 1024 888 1459;
  Mul 1232 882 1083; Add 1024 1024 1232; Sub 1543 1543 1024; Mul 1024 916 1543; Div 1621 1621 905;
  Mul 1232 1260 1148; Sub 1621 1621 1232; Mul 1232 915 1621; Add 1024 1024 1232; Sub 1037 1037 1024;
  Mul 1024 890 1459; Mul 1232 882 1632; Add 1024 1024 1232; Add 1032 1032 1024; Mul 1024 918 1032;
  Div 1076 1076 905; Mul 1232 1249 1148; Sub 1076 1076 1232; Mul 1232 917 1076; Add 1024 1024 1232;
  Add 1037 1037 1024; Div 1186 1186 905; Mul 1024 1569 1148; Sub 1186 1186 1024; Mul 1024 919 1186;
  Mul 1232 892 1459; Mul 1047 882 1211; Add 1232 1232 1047; Add 1126 1126 1232; Mul 1232 920 1126;
  Sub 1024 1024 1232; Sub 1037 1037 1024; Mul 1024 912 1037; Mul 1232 911 1055; Add 1024 1024 1232;
  Add 1385 1385 1024; Mul 1024 944 1385; Mul 1232 210 1028; Mul 1047 168 1074; Add 1232 1232 1047;
  Mul 1047 777 1638; Mul 1086 171 1675; Add 1047 1047 1086; Add 1232 1232 1047; Mul 1047 778 1521;
  Mul 1086 877 1090; Add 1047 1047 1086; Add 1232 1232 1047; Mul 1047 769 1049; Mul 1086 878 1081;
  Add 1047 1047 1086; Add 1232 1232 1047; Mul 1047 761 1042; Mul 1086 98 1451; Add 1047 1047 1086;
  Add 1232 1232 1047; Mul 1047 754 1508; Mul 1086 855 1690; Add 1047 1047 1086; Add 1232 1232 1047;
  Mul 1047 210 1232; Mul 1086 922 1074; Add 1047 1047 1086; Sub 1028 1028 1047; Mul 1047 881 1028;
  Mul 1086 923 1098; Add 1047 1047 1086; Mul 1086 777 1232; Mul 1089 922 1675; Add 1086 1086 1089;
  Sub 1638 1638 1086; Mul 1086 884 1638; Mul 1089 925 1077; Add 1086 1086 1089; Add 1047 1047 1086;
  Mul 1086 778 1232; Mul 1089 922 1090; Add 1086 1086 1089; Sub 1086 1086 1521; Mul 1521 886 1086;
  Mul 1089 926 1053; Add 1521 1521 1089; Add 1047 1047 1521; Mul 1521 769 1232; Mul 1089 922 1081;
  Add 1521 1521 1089; Sub 1049 1049 1521; Mul 1521 888 1049; Mul 1089 927 1083; Add 1521 1521 1089;
  Add 1047 1047 1521; Mul 1521 761 1232; Mul 1089 922 1451; Add 1521 1521 1089].
Definition casadi_f0_135 : list instruction := [
  Sub 1521 1042 1521; Mul 1089 890 1521; Mul 1412 928 1632; Add 1089 1089 1412; Add 1047 1047 1089;
  Mul 1089 754 1232; Mul 1412 922 1690; Add 1089 1089 1412; Sub 1508 1508 1089; Mul 1089 892 1508;
  Mul 1412 929 1211; Add 1089 1089 1412; Add 1047 1047 1089; Mul 1089 881 1047; Mul 1412 924 1098;
  Add 1089 1089 1412; Sub 1028 1028 1089; Mul 1089 884 1047; Mul 1412 924 1077; Add 1089 1089 1412;
  Sub 1638 1638 1089; Mul 1089 910 1638; Mul 1412 931 1036; Add 1089 1089 1412; Mul 1412 912 1028;
  Mul 1612 930 1055; Add 1412 1412 1612; Sub 1089 1089 1412; Mul 1412 886 1047; Mul 1612 924 1053;
  Add 1412 1412 1612; Sub 1086 1086 1412; Mul 1412 914 1086; Mul 1612 933 1075; Add 1412 1412 1612;
  Add 1089 1089 1412; Mul 1412 888 1047; Mul 1612 924 1083; Add 1412 1412 1612; Sub 1049 1049 1412;
  Mul 1412 916 1049; Mul 1612 934 1621; Add 1412 1412 1612; Sub 1089 1089 1412; Mul 1412 890 1047;
  Mul 1612 924 1632; Add 1412 1412 1612; Sub 1521 1521 1412; Mul 1412 918 1521; Mul 1612 935 1076;
  Add 1412 1412 1612; Sub 1089 1089 1412; Mul 1412 892 1047; Mul 1612 924 1211; Add 1412 1412 1612;
  Sub 1508 1508 1412; Mul 1412 920 1508; Mul 1612 936 1186; Add 1412 1412 1612; Sub 1089 1089 1412;
  Mul 1412 912 1089; Mul 1612 932 1055; Add 1412 1412 1612; Add 1028 1028 1412; Div 1412 1028 938;
  Mul 1028 937 1028; Mul 1612 910 1089; Mul 1676 932 1036; Add 1612 1612 1676; Sub 1638 1638 1612;
  Mul 1612 939 1638; Add 1028 1028 1612; Mul 1612 914 1089; Mul 1676 932 1075; Add 1612 1612 1676;
  Sub 1086 1086 1612; Mul 1612 940 1086; Add 1028 1028 1612; Mul 1612 916 1089; Mul 1676 932 1621;
  Add 1612 1612 1676; Add 1049 1049 1612; Mul 1612 941 1049; Add 1028 1028 1612; Mul 1612 918 1089;
  Mul 1676 932 1076; Add 1612 1612 1676; Add 1521 1521 1612; Mul 1612 942 1521; Add 1028 1028 1612;
  Mul 1612 920 1089; Mul 1676 932 1186; Add 1612 1612 1676; Add 1508 1508 1612; Mul 1612 943 1508;
  Add 1028 1028 1612; Div 1028 1028 1615; Mul 1612 1446 1028; Sub 1412 1412 1612; Mul 1612 921 1412;
  Add 1024 1024 1612; Mul 1612 910 1037; Mul 1676 911 1036; Add 1612 1612 1676; Sub 1048 1048 1612;
  Mul 1612 947 1048; Div 1638 1638 938; Mul 1676 1184 1028; Sub 1638 1638 1676; Mul 1676 946 1638;
  Add 1612 1612 1676; Add 1024 1024 1612; Mul 1612 914 1037; Mul 1676 911 1075; Add 1612 1612 1676;
  Sub 1349 1349 1612; Mul 1612 949 1349; Div 1086 1086 938; Mul 1676 1160 1028; Sub 1086 1086 1676;
  Mul 1676 948 1086; Add 1612 1612 1676; Add 1024 1024 1612; Mul 1612 916 1037; Mul 1676 911 1621;
  Add 1612 1612 1676; Add 1543 1543 1612; Mul 1612 951 1543; Div 1049 1049 938; Mul 1676 1328 1028;
  Sub 1049 1049 1676; Mul 1676 950 1049; Add 1612 1612 1676; Add 1024 1024 1612; Mul 1612 918 1037;
  Mul 1676 911 1076; Add 1612 1612 1676; Sub 1612 1612 1032; Mul 1032 953 1612; Div 1521 1521 938;
  Mul 1676 1155 1028; Sub 1521 1521 1676; Mul 1676 952 1521; Add 1032 1032 1676; Add 1024 1024 1032;
  Mul 1032 920 1037; Mul 1676 911 1186; Add 1032 1032 1676; Sub 1032 1032 1126].
Definition casadi_f0_136 : list instruction := [
  Mul 1126 955 1032; Div 1508 1508 938; Mul 1676 1220 1028; Sub 1508 1508 1676; Mul 1676 954 1508;
  Add 1126 1126 1676; Add 1024 1024 1126; Mul 1126 944 1024; Mul 1676 945 1412; Add 1126 1126 1676;
  Sub 1385 1385 1126; Mul 1126 986 1385; Mul 1676 210 1020; Mul 1082 175 1074; Add 1676 1676 1082;
  Mul 1082 777 1240; Mul 1482 188 1675; Add 1082 1082 1482; Add 1676 1676 1082; Mul 1082 778 1639;
  Mul 1482 94 1090; Add 1082 1082 1482; Add 1676 1676 1082; Mul 1082 769 1042; Mul 1482 98 1081;
  Add 1082 1082 1482; Add 1676 1676 1082; Mul 1082 761 1021; Mul 1482 172 1451; Add 1082 1082 1482;
  Sub 1676 1676 1082; Mul 1082 754 1181; Mul 1482 201 1690; Add 1082 1082 1482; Sub 1676 1676 1082;
  Mul 1082 210 1676; Mul 1074 957 1074; Add 1082 1082 1074; Sub 1020 1020 1082; Mul 1082 881 1020;
  Mul 1074 958 1098; Add 1082 1082 1074; Mul 1074 777 1676; Mul 1675 957 1675; Add 1074 1074 1675;
  Sub 1240 1240 1074; Mul 1074 884 1240; Mul 1675 960 1077; Add 1074 1074 1675; Add 1082 1082 1074;
  Mul 1074 778 1676; Mul 1090 957 1090; Add 1074 1074 1090; Sub 1074 1074 1639; Mul 1639 886 1074;
  Mul 1090 961 1053; Add 1639 1639 1090; Add 1082 1082 1639; Mul 1639 769 1676; Mul 1081 957 1081;
  Add 1639 1639 1081; Sub 1042 1042 1639; Mul 1639 888 1042; Mul 1081 962 1083; Add 1639 1639 1081;
  Add 1082 1082 1639; Mul 1639 761 1676; Mul 1451 957 1451; Add 1639 1639 1451; Add 1021 1021 1639;
  Mul 1639 890 1021; Mul 1451 963 1632; Add 1639 1639 1451; Sub 1082 1082 1639; Mul 1639 754 1676;
  Mul 1690 957 1690; Add 1639 1639 1690; Add 1181 1181 1639; Mul 1639 892 1181; Mul 1690 964 1211;
  Add 1639 1639 1690; Sub 1082 1082 1639; Mul 1639 881 1082; Mul 1690 959 1098; Add 1639 1639 1690;
  Sub 1020 1020 1639; Mul 1639 884 1082; Mul 1690 959 1077; Add 1639 1639 1690; Sub 1240 1240 1639;
  Mul 1639 910 1240; Mul 1690 966 1036; Add 1639 1639 1690; Mul 1690 912 1020; Mul 1451 965 1055;
  Add 1690 1690 1451; Sub 1639 1639 1690; Mul 1690 886 1082; Mul 1451 959 1053; Add 1690 1690 1451;
  Sub 1074 1074 1690; Mul 1690 914 1074; Mul 1451 968 1075; Add 1690 1690 1451; Add 1639 1639 1690;
  Mul 1690 888 1082; Mul 1451 959 1083; Add 1690 1690 1451; Sub 1042 1042 1690; Mul 1690 916 1042;
  Mul 1451 969 1621; Add 1690 1690 1451; Sub 1639 1639 1690; Mul 1690 890 1082; Mul 1451 959 1632;
  Add 1690 1690 1451; Add 1021 1021 1690; Mul 1690 918 1021; Mul 1451 970 1076; Add 1690 1690 1451;
  Add 1639 1639 1690; Mul 1690 892 1082; Mul 1451 959 1211; Add 1690 1690 1451; Add 1181 1181 1690;
  Mul 1690 920 1181; Mul 1451 971 1186; Add 1690 1690 1451; Add 1639 1639 1690; Mul 1690 912 1639;
  Mul 1451 967 1055; Add 1690 1690 1451; Add 1020 1020 1690; Mul 1690 944 1020; Mul 1451 972 1412;
  Add 1690 1690 1451; Mul 1451 910 1639; Mul 1081 967 1036; Add 1451 1451 1081; Sub 1240 1240 1451;
  Mul 1451 947 1240; Mul 1081 974 1638; Add 1451 1451 1081; Add 1690 1690 1451; Mul 1451 914 1639;
  Mul 1081 967 1075; Add 1451 1451 1081; Sub 1074 1074 1451; Mul 1451 949 1074].
Definition casadi_f0_137 : list instruction := [
  Mul 1081 975 1086; Add 1451 1451 1081; Add 1690 1690 1451; Mul 1451 916 1639; Mul 1081 967 1621;
  Add 1451 1451 1081; Add 1042 1042 1451; Mul 1451 951 1042; Mul 1081 976 1049; Add 1451 1451 1081;
  Add 1690 1690 1451; Mul 1451 918 1639; Mul 1081 967 1076; Add 1451 1451 1081; Sub 1451 1451 1021;
  Mul 1021 953 1451; Mul 1081 977 1521; Add 1021 1021 1081; Add 1690 1690 1021; Mul 1021 920 1639;
  Mul 1081 967 1186; Add 1021 1021 1081; Sub 1021 1021 1181; Mul 1181 955 1021; Mul 1081 978 1508;
  Add 1181 1181 1081; Add 1690 1690 1181; Mul 1181 944 1690; Mul 1081 973 1412; Add 1181 1181 1081;
  Sub 1020 1020 1181; Div 1181 1020 980; Mul 1020 979 1020; Mul 1081 947 1690; Mul 1090 973 1638;
  Add 1081 1081 1090; Sub 1240 1240 1081; Mul 1081 981 1240; Add 1020 1020 1081; Mul 1081 949 1690;
  Mul 1090 973 1086; Add 1081 1081 1090; Sub 1074 1074 1081; Mul 1081 982 1074; Add 1020 1020 1081;
  Mul 1081 951 1690; Mul 1090 973 1049; Add 1081 1081 1090; Sub 1042 1042 1081; Mul 1081 983 1042;
  Add 1020 1020 1081; Mul 1081 953 1690; Mul 1090 973 1521; Add 1081 1081 1090; Sub 1451 1451 1081;
  Mul 1081 984 1451; Add 1020 1020 1081; Mul 1081 955 1690; Mul 1090 973 1508; Add 1081 1081 1090;
  Sub 1021 1021 1081; Mul 1081 985 1021; Add 1020 1020 1081; Div 1020 1020 1630; Mul 1081 1629 1020;
  Sub 1181 1181 1081; Mul 1081 956 1181; Add 1126 1126 1081; Mul 1081 947 1024; Mul 1090 945 1638;
  Add 1081 1081 1090; Sub 1048 1048 1081; Mul 1081 989 1048; Div 1240 1240 980; Mul 1090 1262 1020;
  Sub 1240 1240 1090; Mul 1090 988 1240; Add 1081 1081 1090; Add 1126 1126 1081; Mul 1081 949 1024;
  Mul 1090 945 1086; Add 1081 1081 1090; Sub 1349 1349 1081; Mul 1081 991 1349; Div 1074 1074 980;
  Mul 1090 1306 1020; Sub 1074 1074 1090; Mul 1090 990 1074; Add 1081 1081 1090; Add 1126 1126 1081;
  Mul 1081 951 1024; Mul 1090 945 1049; Add 1081 1081 1090; Sub 1543 1543 1081; Mul 1081 993 1543;
  Div 1042 1042 980; Mul 1090 1626 1020; Sub 1042 1042 1090; Mul 1090 992 1042; Add 1081 1081 1090;
  Add 1126 1126 1081; Mul 1081 953 1024; Mul 1090 945 1521; Add 1081 1081 1090; Sub 1612 1612 1081;
  Mul 1081 995 1612; Div 1451 1451 980; Mul 1090 1530 1020; Sub 1451 1451 1090; Mul 1090 994 1451;
  Add 1081 1081 1090; Add 1126 1126 1081; Mul 1081 955 1024; Mul 1090 945 1508; Add 1081 1081 1090;
  Sub 1032 1032 1081; Mul 1081 997 1032; Div 1021 1021 980; Mul 1090 1472 1020; Sub 1021 1021 1090;
  Mul 1090 996 1021; Add 1081 1081 1090; Add 1126 1126 1081; Mul 1081 986 1126; Mul 1090 987 1181;
  Add 1081 1081 1090; Sub 1385 1385 1081; Div 1081 1385 999; Mul 1385 998 1385; Mul 1090 989 1126;
  Mul 1675 987 1240; Add 1090 1090 1675; Sub 1048 1048 1090; Mul 1090 1000 1048; Add 1385 1385 1090;
  Mul 1090 991 1126; Mul 1675 987 1074; Add 1090 1090 1675; Sub 1349 1349 1090; Mul 1090 1001 1349;
  Add 1385 1385 1090; Mul 1090 993 1126; Mul 1675 987 1042; Add 1090 1090 1675; Sub 1543 1543 1090;
  Mul 1090 1002 1543; Add 1385 1385 1090; Mul 1090 995 1126; Mul 1675 987 1451].
Definition casadi_f0_138 : list instruction := [
  Add 1090 1090 1675; Sub 1612 1612 1090; Mul 1090 1003 1612; Add 1385 1385 1090; Mul 1090 997 1126;
  Mul 1675 987 1021; Add 1090 1090 1675; Sub 1032 1032 1090; Mul 1090 1004 1032; Add 1385 1385 1090;
  Div 1385 1385 1095; Mul 1090 1596 1385; Sub 1081 1081 1090; Mul 1081 211 1081; Mul 1090 1005 1136;
  Sub 1081 1081 1090; Div 1048 1048 999; Mul 1090 1331 1385; Sub 1048 1048 1090; Mul 1048 779 1048;
  Mul 1090 1007 1101; Sub 1048 1048 1090; Add 1081 1081 1048; Div 1349 1349 999; Mul 1048 1080 1385;
  Sub 1349 1349 1048; Mul 1349 767 1349; Mul 1048 1008 1685; Add 1349 1349 1048; Add 1081 1081 1349;
  Div 1543 1543 999; Mul 1349 1056 1385; Sub 1543 1543 1349; Mul 1543 775 1543; Mul 1349 1009 1453;
  Sub 1543 1543 1349; Add 1081 1081 1543; Div 1612 1612 999; Mul 1543 1068 1385; Sub 1612 1612 1543;
  Mul 1612 815 1612; Mul 1543 1010 1691; Add 1612 1612 1543; Add 1081 1081 1612; Div 1032 1032 999;
  Mul 1612 1178 1385; Sub 1032 1032 1612; Mul 1032 833 1032; Mul 1612 1011 1692; Add 1032 1032 1612;
  Add 1081 1081 1032; Div 1081 1081 999; Mul 1385 1033 1385; Sub 1081 1081 1385; Mul 1385 756 1081;
  Add 1560 1560 1385; Sub 1611 1611 1560; Mul 1676 1012 1676; Mul 1181 211 1181; Mul 1560 986 1136;
  Sub 1181 1181 1560; Mul 1240 779 1240; Mul 1560 989 1101; Sub 1240 1240 1560; Add 1181 1181 1240;
  Mul 1074 767 1074; Mul 1240 991 1685; Add 1074 1074 1240; Add 1181 1181 1074; Mul 1042 775 1042;
  Mul 1074 993 1453; Sub 1042 1042 1074; Add 1181 1181 1042; Mul 1451 815 1451; Mul 1042 995 1691;
  Add 1451 1451 1042; Add 1181 1181 1451; Mul 1021 833 1021; Mul 1451 997 1692; Add 1021 1021 1451;
  Add 1181 1181 1021; Mul 1126 1006 1126; Mul 1021 987 1081; Add 1126 1126 1021; Sub 1181 1181 1126;
  Div 1181 1181 980; Mul 1020 1534 1020; Sub 1181 1181 1020; Mul 1020 957 1181; Add 1676 1676 1020;
  Sub 1611 1611 1676; Mul 1232 1013 1232; Mul 1412 211 1412; Mul 1676 944 1136; Sub 1412 1412 1676;
  Mul 1638 779 1638; Mul 1676 947 1101; Sub 1638 1638 1676; Add 1412 1412 1638; Mul 1086 767 1086;
  Mul 1638 949 1685; Add 1086 1086 1638; Add 1412 1412 1086; Mul 1049 775 1049; Mul 1086 951 1453;
  Sub 1049 1049 1086; Add 1412 1412 1049; Mul 1521 815 1521; Mul 1049 953 1691; Add 1521 1521 1049;
  Add 1412 1412 1521; Mul 1508 833 1508; Mul 1521 955 1692; Add 1508 1508 1521; Add 1412 1412 1508;
  Mul 1024 1006 1024; Mul 1508 945 1081; Add 1024 1024 1508; Sub 1412 1412 1024; Mul 1690 1012 1690;
  Mul 1024 973 1181; Add 1690 1690 1024; Sub 1412 1412 1690; Div 1412 1412 938; Mul 1028 1397 1028;
  Sub 1412 1412 1028; Mul 1028 922 1412; Add 1232 1232 1028; Sub 1611 1611 1232; Mul 1035 1014 1035;
  Mul 1036 779 1036; Mul 1232 910 1101; Sub 1036 1036 1232; Mul 1055 211 1055; Mul 1232 912 1136;
  Sub 1055 1055 1232; Sub 1036 1036 1055; Mul 1075 767 1075; Mul 1055 914 1685; Add 1075 1075 1055;
  Add 1036 1036 1075; Mul 1621 775 1621; Mul 1075 916 1453; Sub 1621 1621 1075; Sub 1036 1036 1621;
  Mul 1076 815 1076; Mul 1621 918 1691; Add 1076 1076 1621; Sub 1036 1036 1076].
Definition casadi_f0_139 : list instruction := [
  Mul 1186 833 1186; Mul 1076 920 1692; Add 1186 1186 1076; Sub 1036 1036 1186; Mul 1037 1006 1037;
  Mul 1186 911 1081; Add 1037 1037 1186; Sub 1036 1036 1037; Mul 1639 1012 1639; Mul 1037 967 1181;
  Add 1639 1639 1037; Sub 1036 1036 1639; Mul 1089 1013 1089; Mul 1639 932 1412; Add 1089 1089 1639;
  Sub 1036 1036 1089; Div 1036 1036 905; Mul 1148 1553 1148; Sub 1036 1036 1148; Mul 1148 895 1036;
  Add 1035 1035 1148; Sub 1611 1611 1035; Mul 1038 1015 1038; Mul 1098 211 1098; Mul 1136 881 1136;
  Sub 1098 1098 1136; Mul 1077 779 1077; Mul 1101 884 1101; Sub 1077 1077 1101; Add 1098 1098 1077;
  Mul 1053 767 1053; Mul 1685 886 1685; Add 1053 1053 1685; Add 1098 1098 1053; Mul 1083 775 1083;
  Mul 1453 888 1453; Sub 1083 1083 1453; Add 1098 1098 1083; Mul 1632 815 1632; Mul 1691 890 1691;
  Add 1632 1632 1691; Add 1098 1098 1632; Mul 1211 833 1211; Mul 1692 892 1692; Add 1211 1211 1692;
  Add 1098 1098 1211; Mul 1459 1006 1459; Mul 1211 882 1081; Add 1459 1459 1211; Sub 1098 1098 1459;
  Mul 1082 1012 1082; Mul 1459 959 1181; Add 1082 1082 1459; Sub 1098 1098 1082; Mul 1047 1013 1047;
  Mul 1082 924 1412; Add 1047 1047 1082; Sub 1098 1098 1047; Mul 1079 1014 1079; Mul 1047 897 1036;
  Add 1079 1079 1047; Sub 1098 1098 1079; Div 1098 1098 65; Mul 1568 1623 1568; Sub 1098 1098 1568;
  Mul 1568 875 1098; Add 1038 1038 1568; Sub 1611 1611 1038; Div 1611 1611 92; Mul 1034 759 1034;
  Sub 1611 1611 1034; Out 1 18 1611; Out 1 19 1098; Out 1 20 1036; Out 1 21 1412; Out 1 22 1181; Out 1 23 1081;
  Arg 1081 1 30; Out 1 24 1081; Arg 1181 1 31; Out 1 25 1181; Arg 1412 1 32; Out 1 26 1412; Arg 1036 1 33;
  Out 1 27 1036; Arg 1098 1 34; Out 1 28 1098; Arg 1611 1 35; Out 1 29 1611; Arg 1034 1 26; Mul 1038 8 1034;
  Mul 1568 10 1038; Arg 1079 1 29; Mul 1047 16 1079; Mul 1082 21 1047; Mul 1079 15 1079; Mul 1459 18 1079;
  Mul 1211 14 1047; Add 1459 1459 1211; Mul 1211 15 1459; Sub 1082 1082 1211; Mul 1211 18 1047;
  Mul 1692 14 1079; Sub 1211 1211 1692; Mul 1211 16 1211; Mul 1692 17 1079; Sub 1211 1211 1692;
  Sub 1692 1082 1211; Mul 1632 28 1079; Mul 1691 26 1047; Add 1632 1632 1691; Mul 1691 1031 1632;
  Mul 1083 28 1047; Mul 1453 26 1079; Sub 1083 1083 1453; Mul 1453 29 1083; Sub 1053 1691 1453;
  Mul 1053 20 1053; Add 1692 1692 1053; Mul 1453 20 1453; Add 1082 1082 1453; Add 1692 1692 1082;
  Mul 1691 20 1691; Add 1211 1211 1691; Add 1211 1211 1082; Add 1691 1692 1211; Mul 1211 19 1211; Arg 1453 1 28;
  Mul 1053 35 1453; Mul 1685 30 1053; Sub 1211 1211 1685; Mul 1453 19 1453; Mul 1685 41 1453; Mul 1077 42 1047;
  Mul 1101 40 1079; Sub 1077 1077 1101; Mul 1101 43 1047; Sub 1077 1077 1101; Mul 1101 44 1083;
  Add 1077 1077 1101; Mul 1101 35 1077; Add 1685 1685 1101; Sub 1211 1211 1685; Mul 1685 19 1211;
  Mul 1101 38 1053; Sub 1685 1685 1101; Mul 1077 19 1077; Mul 1101 41 1053; Sub 1077 1077 1101].
Definition casadi_f0_140 : list instruction := [
  Mul 1101 12 1453; Mul 1692 35 1692; Add 1101 1101 1692; Sub 1077 1077 1101; Mul 1101 35 1077;
  Mul 1692 46 1453; Add 1101 1101 1692; Sub 1685 1685 1101; Sub 1691 1691 1685; Sub 1691 1691 1082;
  Mul 1101 50 1632; Mul 1692 1039 1101; Mul 1136 50 1083; Mul 1035 19 1136; Mul 1148 49 1053;
  Sub 1035 1035 1148; Mul 1148 51 1453; Sub 1035 1035 1148; Mul 1148 1041 1035; Sub 1089 1692 1148;
  Mul 1089 37 1089; Add 1691 1691 1089; Mul 1089 49 1453; Mul 1639 35 1136; Add 1089 1089 1639;
  Mul 1639 51 1053; Sub 1089 1089 1639; Mul 1639 64 1089; Add 1148 1639 1148; Mul 1148 37 1148;
  Add 1148 1082 1148; Add 1691 1691 1148; Mul 1037 43 1079; Mul 1186 42 1079; Mul 1076 40 1047;
  Add 1186 1186 1076; Sub 1037 1037 1186; Mul 1186 44 1632; Sub 1037 1037 1186; Mul 1186 67 1037;
  Mul 1076 19 1186; Mul 1621 71 1053; Sub 1076 1076 1621; Mul 1621 75 1453; Mul 1459 16 1459; Mul 1075 21 1079;
  Add 1459 1459 1075; Mul 1632 74 1632; Mul 1083 20 1083; Mul 1083 34 1083; Sub 1632 1632 1083;
  Add 1459 1459 1632; Add 1632 1459 1459; Mul 1083 35 1632; Sub 1621 1621 1083; Add 1076 1076 1621;
  Mul 1621 73 1453; Mul 1083 35 1459; Sub 1621 1621 1083; Mul 1083 19 1037; Mul 1075 70 1053;
  Sub 1083 1083 1075; Add 1621 1621 1083; Sub 1076 1076 1621; Mul 1621 76 1101; Mul 1083 37 1089;
  Mul 1075 57 1083; Sub 1621 1621 1075; Sub 1076 1076 1621; Mul 1621 67 1076; Mul 1621 66 1621; Arg 1075 1 27;
  Mul 1055 53 1075; Mul 1232 77 1055; Sub 1621 1621 1232; Mul 1075 66 1075; Mul 1232 11 1075; Mul 1028 53 1691;
  Add 1232 1232 1028; Sub 1621 1621 1232; Mul 1232 53 1621; Mul 1028 78 1075; Add 1232 1232 1028;
  Add 1691 1691 1232; Sub 1691 1691 1148; Mul 1028 87 1055; Mul 1690 83 1101; Mul 1024 66 1690;
  Add 1028 1028 1024; Mul 1024 88 1075; Mul 1089 83 1089; Mul 1508 53 1089; Add 1024 1024 1508;
  Add 1028 1028 1024; Mul 1024 1054 1028; Mul 1508 83 1035; Mul 1521 1058 1508; Sub 1049 1024 1521;
  Mul 1049 80 1049; Add 1691 1691 1049; Add 1148 1148 1232; Mul 1232 66 1089; Mul 1049 88 1055;
  Sub 1232 1232 1049; Mul 1049 87 1075; Mul 1086 53 1690; Sub 1049 1049 1086; Add 1232 1232 1049;
  Mul 1049 93 1232; Add 1521 1049 1521; Mul 1521 80 1521; Add 1148 1148 1521; Add 1691 1691 1148;
  Mul 1521 9 1691; Add 1568 1568 1521; Mul 1621 66 1621; Mul 1521 78 1055; Sub 1621 1621 1521;
  Sub 1621 1621 1076; Mul 1076 72 1028; Mul 1521 80 1232; Mul 1086 63 1521; Sub 1076 1076 1086;
  Sub 1621 1621 1076; Mul 1076 67 1621; Mul 1076 8 1076; Mul 1034 9 1034; Mul 1086 97 1034; Sub 1076 1076 1086;
  Add 1568 1568 1076; Mul 1076 9 1568; Mul 1086 84 1038; Add 1076 1076 1086; Sub 1086 1076 1148;
  Mul 1232 104 1232; Mul 1638 8 1232; Mul 1676 103 1034; Sub 1638 1638 1676; Mul 1676 105 1038;
  Mul 1020 104 1028; Mul 1126 9 1020; Sub 1676 1676 1126; Sub 1638 1638 1676; Mul 1676 33 1638;
  Mul 1126 104 1508; Mul 1021 1066 1126; Add 1451 1676 1021; Mul 1451 100 1451; Sub 1086 1086 1451].
Definition casadi_f0_141 : list instruction := [
  Mul 1568 8 1568; Mul 1451 84 1034; Sub 1568 1568 1451; Sub 1568 1568 1621; Mul 1621 103 1038; Mul 1451 9 1232;
  Add 1621 1621 1451; Mul 1451 105 1034; Mul 1042 8 1020; Add 1451 1451 1042; Sub 1621 1621 1451;
  Mul 1451 96 1621; Mul 1042 100 1638; Mul 1074 117 1042; Sub 1451 1451 1074; Add 1568 1568 1451;
  Mul 1568 67 1568; Mul 1568 114 1568; Arg 1451 1 25; Mul 1074 113 1451; Mul 1240 116 1074; Sub 1568 1568 1240;
  Mul 1451 114 1451; Mul 1240 119 1451; Sub 1691 1691 1076; Sub 1691 1691 1148; Mul 1148 1044 1621;
  Sub 1021 1148 1021; Mul 1021 100 1021; Add 1691 1691 1021; Sub 1691 1691 1086; Mul 1691 113 1691;
  Add 1240 1240 1691; Sub 1568 1568 1240; Mul 1568 113 1568; Mul 1240 118 1451; Add 1568 1568 1240;
  Sub 1086 1086 1568; Mul 1638 120 1638; Mul 1568 114 1638; Mul 1240 60 1074; Sub 1568 1568 1240;
  Mul 1240 121 1451; Mul 1691 120 1621; Mul 1021 113 1691; Add 1240 1240 1021; Add 1568 1568 1240;
  Mul 1240 112 1568; Mul 1021 120 1126; Mul 1076 123 1021; Add 1240 1240 1076; Mul 1240 99 1240;
  Sub 1086 1086 1240; Mul 1568 125 1568; Mul 1568 110 1568; Mul 1240 125 1021; Mul 1240 126 1240;
  Add 1568 1568 1240; Mul 1568 122 1568; Add 1086 1086 1568; Div 1568 1086 92; Mul 1086 6 1086;
  Mul 1240 130 1038; Mul 1077 19 1077; Mul 1076 46 1053; Sub 1077 1077 1076; Mul 1211 35 1211; Mul 1076 38 1453;
  Add 1211 1211 1076; Add 1077 1077 1211; Mul 1083 52 1083; Mul 1211 76 1035; Add 1083 1083 1211;
  Add 1077 1077 1083; Mul 1083 66 1077; Mul 1211 129 1055; Sub 1083 1083 1211; Mul 1211 132 1075;
  Mul 1076 70 1453; Mul 1560 35 1037; Add 1076 1076 1560; Mul 1560 73 1053; Mul 1385 19 1459;
  Add 1560 1560 1385; Add 1076 1076 1560; Mul 1632 19 1632; Mul 1560 75 1053; Add 1632 1632 1560;
  Mul 1186 35 1186; Mul 1560 71 1453; Add 1186 1186 1560; Add 1632 1632 1186; Sub 1076 1076 1632;
  Mul 1632 133 1101; Mul 1035 37 1035; Mul 1035 57 1035; Sub 1632 1632 1035; Sub 1076 1076 1632;
  Mul 1632 53 1076; Add 1211 1211 1632; Add 1083 1083 1211; Mul 1521 27 1521; Mul 1211 72 1508;
  Add 1521 1521 1211; Add 1083 1083 1521; Mul 1521 9 1083; Add 1240 1240 1521; Add 1521 1076 1076;
  Mul 1521 66 1521; Mul 1211 136 1055; Sub 1521 1521 1211; Mul 1211 129 1075; Mul 1632 53 1077;
  Add 1211 1211 1632; Sub 1521 1521 1211; Mul 1211 66 1076; Mul 1632 132 1055; Sub 1211 1211 1632;
  Sub 1521 1521 1211; Mul 1028 138 1028; Mul 1211 80 1508; Mul 1211 63 1211; Sub 1028 1028 1211;
  Sub 1521 1521 1028; Add 1028 1521 1521; Mul 1028 8 1028; Mul 1211 139 1034; Sub 1028 1028 1211;
  Add 1240 1240 1028; Mul 1028 8 1521; Mul 1211 137 1034; Sub 1028 1028 1211; Sub 1240 1240 1028;
  Mul 1621 140 1621; Mul 1028 100 1126; Mul 1028 117 1028; Sub 1621 1621 1028; Add 1240 1240 1621;
  Mul 1621 141 1021; Mul 1621 121 1621; Mul 1028 142 1691; Add 1621 1621 1028; Sub 1240 1240 1621;
  Mul 1240 114 1240; Mul 1621 134 1074; Sub 1240 1240 1621; Mul 1621 145 1451; Mul 1028 8 1083;
  Mul 1211 130 1034].
Definition casadi_f0_142 : list instruction := [
  Sub 1028 1028 1211; Mul 1211 137 1038; Mul 1632 9 1521; Add 1211 1211 1632; Sub 1028 1028 1211;
  Mul 1042 111 1042; Mul 1211 96 1126; Add 1042 1042 1211; Add 1028 1028 1042; Mul 1042 141 1638;
  Mul 1042 124 1042; Mul 1021 146 1021; Add 1042 1042 1021; Sub 1028 1028 1042; Mul 1028 113 1028;
  Add 1621 1621 1028; Sub 1240 1240 1621; Mul 1621 1073 1240; Add 1086 1086 1621; Mul 1621 150 1451;
  Mul 1028 149 1038; Mul 1042 148 1126; Mul 1021 147 1020; Mul 1211 109 1021; Sub 1042 1042 1211;
  Add 1521 1521 1042; Mul 1042 9 1521; Add 1028 1028 1042; Mul 1126 151 1126; Mul 1042 147 1232;
  Mul 1211 109 1042; Add 1126 1126 1211; Add 1083 1083 1126; Mul 1126 8 1083; Mul 1211 152 1034;
  Sub 1126 1126 1211; Sub 1028 1028 1126; Mul 1126 148 1038; Mul 1211 9 1021; Sub 1126 1126 1211;
  Mul 1211 8 1042; Mul 1632 151 1034; Sub 1211 1211 1632; Sub 1126 1126 1211; Mul 1211 108 1126;
  Add 1028 1028 1211; Mul 1028 113 1028; Add 1621 1621 1028; Mul 1028 152 1038; Mul 1083 9 1083;
  Add 1028 1028 1083; Mul 1521 8 1521; Mul 1083 149 1034; Sub 1521 1521 1083; Add 1028 1028 1521;
  Mul 1521 151 1038; Mul 1083 9 1042; Add 1521 1521 1083; Mul 1083 148 1034; Mul 1211 8 1021;
  Add 1083 1083 1211; Sub 1521 1521 1083; Mul 1521 108 1521; Add 1028 1028 1521; Mul 1028 114 1028;
  Mul 1521 155 1074; Sub 1028 1028 1521; Add 1621 1621 1028; Mul 1028 1050 1621; Add 1086 1086 1028;
  Mul 1028 159 1038; Mul 1521 156 1089; Mul 1521 82 1521; Mul 1083 157 1508; Add 1521 1521 1083;
  Sub 1077 1077 1521; Mul 1521 66 1077; Mul 1083 158 1055; Sub 1521 1521 1083; Mul 1083 161 1075;
  Mul 1508 156 1508; Mul 1508 87 1508; Mul 1211 160 1690; Sub 1508 1508 1211; Sub 1076 1076 1508;
  Mul 1508 53 1076; Add 1083 1083 1508; Add 1521 1521 1083; Mul 1083 9 1521; Add 1028 1028 1083;
  Mul 1076 66 1076; Mul 1083 161 1055; Sub 1076 1076 1083; Mul 1083 158 1075; Mul 1077 53 1077;
  Add 1083 1083 1077; Sub 1076 1076 1083; Mul 1083 8 1076; Mul 1077 163 1034; Sub 1083 1083 1077;
  Add 1028 1028 1083; Mul 1083 167 1075; Mul 1077 166 1089; Mul 1508 53 1077; Add 1083 1083 1508;
  Mul 1508 164 1055; Mul 1211 156 1690; Mul 1632 66 1211; Add 1508 1508 1632; Sub 1083 1083 1508;
  Mul 1508 8 1083; Mul 1632 165 1034; Sub 1508 1508 1632; Mul 1632 169 1038; Mul 1077 66 1077;
  Mul 1035 167 1055; Sub 1077 1077 1035; Mul 1035 164 1075; Mul 1211 53 1211; Sub 1035 1035 1211;
  Sub 1077 1077 1035; Mul 1035 9 1077; Add 1632 1632 1035; Sub 1508 1508 1632; Mul 1508 108 1508;
  Sub 1028 1028 1508; Mul 1028 114 1028; Mul 1508 162 1074; Sub 1028 1028 1508; Mul 1508 170 1451;
  Mul 1521 8 1521; Mul 1632 159 1034; Sub 1521 1521 1632; Mul 1632 163 1038; Mul 1076 9 1076;
  Add 1632 1632 1076; Sub 1521 1521 1632; Mul 1632 165 1038; Mul 1076 9 1083; Add 1632 1632 1076;
  Mul 1076 8 1077; Mul 1035 169 1034; Sub 1076 1076 1035; Add 1632 1632 1076; Mul 1076 108 1632;
  Add 1521 1521 1076; Mul 1521 113 1521; Add 1508 1508 1521; Sub 1028 1028 1508].
Definition casadi_f0_143 : list instruction := [
  Mul 1508 1070 1028; Add 1086 1086 1508; Mul 1508 179 1038; Mul 1521 177 1075; Mul 1076 174 1136;
  Mul 1136 173 1136; Mul 1035 49 1136; Add 1076 1076 1035; Add 1076 1076 1082; Mul 1035 174 1453;
  Mul 1211 35 1136; Add 1035 1035 1211; Mul 1211 176 1053; Sub 1035 1035 1211; Mul 1211 62 1035;
  Mul 1186 176 1453; Mul 1560 19 1136; Mul 1385 174 1053; Sub 1560 1560 1385; Sub 1186 1186 1560;
  Mul 1560 48 1186; Sub 1211 1211 1560; Add 1211 1076 1211; Mul 1560 53 1211; Add 1521 1521 1560;
  Mul 1560 176 1101; Sub 1037 1037 1560; Mul 1560 19 1037; Mul 1385 180 1053; Sub 1560 1560 1385;
  Mul 1385 182 1453; Mul 1136 56 1136; Mul 1101 174 1101; Sub 1136 1136 1101; Sub 1136 1136 1459;
  Mul 1459 35 1136; Add 1385 1385 1459; Add 1560 1560 1385; Mul 1385 55 1035; Add 1560 1560 1385;
  Mul 1385 66 1560; Mul 1459 181 1055; Sub 1385 1385 1459; Sub 1521 1521 1385; Mul 1385 86 1035;
  Sub 1521 1521 1385; Mul 1385 9 1521; Add 1508 1508 1385; Mul 1385 181 1075; Mul 1560 53 1560;
  Add 1385 1385 1560; Mul 1211 66 1211; Mul 1560 177 1055; Sub 1211 1211 1560; Add 1385 1385 1211;
  Mul 1211 91 1035; Add 1385 1385 1211; Mul 1211 8 1385; Mul 1560 184 1034; Sub 1211 1211 1560;
  Add 1508 1508 1211; Mul 1035 102 1035; Mul 1211 66 1186; Mul 1560 178 1055; Sub 1211 1211 1560;
  Mul 1560 8 1211; Mul 1459 185 1034; Sub 1560 1560 1459; Mul 1459 187 1038; Mul 1101 178 1075;
  Mul 1032 53 1186; Add 1101 1101 1032; Mul 1032 9 1101; Add 1459 1459 1032; Add 1560 1560 1459;
  Mul 1560 108 1560; Sub 1035 1035 1560; Add 1508 1508 1035; Mul 1508 114 1508; Mul 1035 183 1074;
  Sub 1508 1508 1035; Mul 1035 186 1451; Mul 1521 8 1521; Mul 1560 179 1034; Sub 1521 1521 1560;
  Mul 1560 184 1038; Mul 1385 9 1385; Add 1560 1560 1385; Sub 1521 1521 1560; Mul 1560 185 1038;
  Mul 1385 9 1211; Add 1560 1560 1385; Mul 1385 8 1101; Mul 1459 187 1034; Sub 1385 1385 1459;
  Sub 1560 1560 1385; Mul 1385 108 1560; Add 1521 1521 1385; Mul 1521 113 1521; Add 1035 1035 1521;
  Sub 1508 1508 1035; Mul 1035 1059 1508; Add 1086 1086 1035; Mul 1035 199 1038; Mul 1521 196 1453;
  Mul 1385 197 1047; Mul 1459 195 1079; Sub 1385 1385 1459; Mul 1459 190 1079; Mul 1032 192 1047;
  Add 1459 1459 1032; Mul 1032 198 1459; Add 1385 1385 1032; Mul 1032 35 1385; Add 1521 1521 1032;
  Mul 1032 189 1053; Mul 1612 25 1459; Mul 1543 190 1047; Mul 1349 192 1079; Sub 1543 1543 1349;
  Mul 1349 32 1543; Add 1612 1612 1349; Mul 1349 19 1612; Add 1032 1032 1349; Sub 1521 1521 1032;
  Mul 1032 48 1459; Mul 1349 19 1543; Mul 1048 194 1053; Sub 1349 1349 1048; Mul 1048 55 1349;
  Add 1032 1032 1048; Sub 1521 1521 1032; Mul 1032 66 1521; Mul 1048 193 1055; Sub 1032 1032 1048;
  Mul 1048 202 1075; Mul 1090 198 1543; Mul 1675 197 1079; Mul 1482 195 1047; Add 1675 1675 1482;
  Sub 1090 1090 1675; Mul 1675 62 1349; Mul 1482 194 1453; Mul 1543 35 1543; Add 1482 1482 1543;
  Mul 1543 48 1482; Sub 1675 1675 1543; Add 1675 1090 1675; Mul 1543 53 1675].
Definition casadi_f0_144 : list instruction := [
  Add 1048 1048 1543; Add 1032 1032 1048; Mul 1048 86 1349; Sub 1032 1032 1048; Mul 1048 9 1032;
  Add 1035 1035 1048; Mul 1675 66 1675; Mul 1048 202 1055; Sub 1675 1675 1048; Mul 1048 193 1075;
  Mul 1521 53 1521; Add 1048 1048 1521; Sub 1675 1675 1048; Mul 1048 91 1349; Add 1675 1675 1048;
  Mul 1048 8 1675; Mul 1521 205 1034; Sub 1048 1048 1521; Add 1035 1035 1048; Mul 1349 102 1349;
  Mul 1048 66 1482; Mul 1521 203 1055; Sub 1048 1048 1521; Mul 1521 191 1075; Mul 1543 53 1459;
  Sub 1521 1521 1543; Add 1048 1048 1521; Mul 1521 8 1048; Mul 1543 206 1034; Sub 1521 1521 1543;
  Mul 1543 208 1038; Mul 1198 191 1055; Mul 1532 66 1459; Add 1198 1198 1532; Mul 1532 203 1075;
  Mul 1164 53 1482; Add 1532 1532 1164; Add 1198 1198 1532; Mul 1532 9 1198; Sub 1543 1543 1532;
  Sub 1521 1521 1543; Mul 1521 108 1521; Sub 1349 1349 1521; Add 1035 1035 1349; Mul 1035 114 1035;
  Mul 1349 204 1074; Sub 1035 1035 1349; Mul 1349 207 1451; Mul 1032 8 1032; Mul 1521 199 1034;
  Sub 1032 1032 1521; Mul 1521 205 1038; Mul 1675 9 1675; Add 1521 1521 1675; Sub 1032 1032 1521;
  Mul 1521 206 1038; Mul 1675 9 1048; Add 1521 1521 1675; Mul 1675 208 1034; Mul 1543 8 1198;
  Add 1675 1675 1543; Sub 1521 1521 1675; Mul 1675 108 1521; Add 1032 1032 1675; Mul 1032 113 1032;
  Add 1349 1349 1032; Sub 1035 1035 1349; Mul 1349 1043 1035; Add 1086 1086 1349; Div 1086 1086 1085;
  Mul 1349 1072 1086; Sub 1568 1568 1349; Mul 1349 211 1568; Mul 1032 216 1451; Arg 1675 1 24;
  Mul 1543 215 1675; Mul 1532 113 1543; Sub 1032 1032 1532; Mul 1532 218 1032; Mul 1164 114 1081;
  Mul 1368 0 1074; Sub 1164 1164 1368; Mul 1368 217 1164; Add 1532 1532 1368; Mul 1675 216 1675;
  Mul 1368 1 1675; Mul 1667 215 1181; Add 1368 1368 1667; Sub 1532 1532 1368; Mul 1368 0 1451;
  Mul 1667 113 1081; Add 1368 1368 1667; Mul 1667 220 1368; Mul 1354 114 1543; Mul 1143 216 1074;
  Add 1354 1354 1143; Mul 1143 221 1354; Sub 1667 1667 1143; Sub 1532 1532 1667; Mul 1667 214 1532;
  Mul 1143 213 1667; Mul 1143 212 1143; Mul 1290 225 1143; Mul 1674 114 1675; Mul 1645 215 1074;
  Sub 1674 1674 1645; Mul 1645 101 1674; Mul 1622 107 1543; Sub 1645 1645 1622; Mul 1622 223 1645;
  Add 1030 1290 1622; Mul 1173 216 1181; Mul 1673 1 1543; Sub 1173 1173 1673; Mul 1673 113 1675;
  Mul 1141 215 1451; Add 1673 1673 1141; Mul 1141 218 1673; Mul 1442 228 1164; Add 1141 1141 1442;
  Add 1173 1173 1141; Mul 1141 221 1674; Mul 1442 224 1368; Add 1141 1141 1442; Sub 1173 1173 1141;
  Mul 1141 214 1173; Mul 1442 213 1141; Mul 1442 212 1442; Mul 1229 231 1442; Mul 1242 101 1354;
  Mul 1421 107 1675; Add 1242 1242 1421; Mul 1421 230 1242; Sub 1229 1229 1421; Sub 1421 1030 1229;
  Add 1622 1622 1290; Sub 1229 1622 1229; Add 1290 1421 1229; Mul 1187 144 1451; Mul 1132 215 1187;
  Mul 1535 240 1675; Add 1132 1132 1535; Mul 1535 236 1074; Mul 1291 238 1451; Add 1535 1535 1291;
  Mul 1291 220 1535; Mul 1666 237 1354; Add 1291 1291 1666; Sub 1132 1132 1291].
Definition casadi_f0_145 : list instruction := [
  Mul 1291 115 1543; Add 1132 1132 1291; Mul 1291 212 1242; Mul 1666 242 1291; Mul 1448 101 1451;
  Mul 1205 241 1448; Add 1666 1666 1205; Add 1666 1132 1666; Mul 1205 244 1666; Mul 1679 213 1173;
  Mul 1427 243 1679; Add 1499 1205 1427; Mul 1649 237 1674; Mul 1546 224 1535; Sub 1649 1649 1546;
  Mul 1187 216 1187; Mul 1546 240 1543; Sub 1187 1187 1546; Sub 1649 1649 1187; Mul 1187 115 1675;
  Sub 1649 1649 1187; Mul 1187 212 1645; Mul 1187 242 1187; Mul 1546 247 1448; Sub 1187 1187 1546;
  Sub 1187 1649 1187; Mul 1546 249 1187; Mul 1175 213 1532; Mul 1592 248 1175; Add 1369 1546 1592;
  Sub 1586 1499 1369; Sub 1290 1290 1586; Add 1592 1592 1546; Add 1427 1427 1205; Sub 1205 1592 1427;
  Add 1290 1290 1205; Mul 1205 9 1032; Mul 1546 217 1038; Add 1205 1205 1546; Mul 1546 8 1354;
  Mul 1586 220 1034; Add 1546 1546 1586; Sub 1205 1205 1546; Mul 1546 254 1205; Mul 1586 218 1038;
  Mul 1460 9 1164; Add 1586 1586 1460; Mul 1460 8 1368; Mul 1218 221 1034; Sub 1460 1460 1218;
  Sub 1586 1586 1460; Mul 1460 253 1586; Add 1546 1546 1460; Mul 1032 8 1032; Mul 1460 217 1034;
  Sub 1032 1032 1460; Mul 1460 220 1038; Mul 1218 9 1354; Sub 1460 1460 1218; Sub 1032 1032 1460;
  Mul 1460 257 1032; Mul 1218 221 1038; Mul 1665 9 1368; Add 1218 1218 1665; Mul 1665 8 1164; Mul 1112 218 1034;
  Sub 1665 1665 1112; Add 1218 1218 1665; Mul 1665 256 1218; Add 1460 1460 1665; Mul 1665 259 1675;
  Sub 1112 1181 1412; Mul 1664 215 1112; Add 1665 1665 1664; Sub 1460 1460 1665; Add 1546 1546 1460;
  Mul 1460 213 1546; Mul 1665 276 1460; Mul 1664 114 1038; Mul 1224 9 1074; Sub 1664 1664 1224; Mul 1224 8 1451;
  Mul 1210 113 1034; Sub 1224 1224 1210; Sub 1664 1664 1224; Mul 1224 260 1664; Mul 1210 9 1451;
  Mul 1425 113 1038; Add 1210 1210 1425; Mul 1425 8 1074; Mul 1219 114 1034; Add 1425 1425 1219;
  Sub 1210 1210 1425; Mul 1425 263 1210; Add 1224 1224 1425; Mul 1425 265 1224; Mul 1219 8 1674;
  Mul 1365 224 1034; Sub 1219 1219 1365; Mul 1365 9 1673; Mul 1188 228 1038; Add 1365 1365 1188;
  Add 1219 1219 1365; Mul 1365 262 1219; Add 1425 1425 1365; Mul 1365 127 1664; Mul 1188 268 1210;
  Add 1365 1365 1188; Mul 1188 216 1365; Mul 1660 267 1543; Sub 1188 1188 1660; Add 1425 1425 1188;
  Mul 1188 135 1205; Mul 1660 95 1675; Add 1188 1188 1660; Sub 1425 1425 1188; Mul 1188 102 1674;
  Mul 1660 108 1543; Sub 1188 1188 1660; Mul 1660 79 1219; Mul 1620 8 1673; Mul 1419 228 1034;
  Sub 1620 1620 1419; Mul 1419 9 1674; Mul 1392 224 1038; Add 1419 1419 1392; Sub 1620 1620 1419;
  Mul 1419 85 1620; Mul 1392 81 1543; Sub 1419 1419 1392; Add 1660 1660 1419; Add 1660 1188 1660;
  Mul 1419 269 1660; Mul 1419 275 1419; Mul 1392 79 1664; Mul 1319 85 1210; Add 1392 1392 1319;
  Mul 1319 102 1451; Sub 1392 1392 1319; Mul 1441 272 1392; Add 1419 1419 1441; Sub 1419 1425 1419;
  Mul 1441 258 1419; Add 1642 1665 1441; Mul 1052 254 1219; Mul 1142 265 1586; Add 1052 1052 1142;
  Mul 1142 216 1112; Mul 1663 259 1543].
Definition casadi_f0_146 : list instruction := [
  Sub 1142 1142 1663; Mul 1663 257 1620; Mul 1213 273 1218; Add 1663 1663 1213; Add 1142 1142 1663;
  Add 1052 1052 1142; Mul 1142 213 1052; Mul 1663 284 1142; Mul 1213 253 1224; Mul 1124 262 1205;
  Add 1213 1213 1124; Mul 1365 215 1365; Mul 1124 267 1675; Add 1365 1365 1124; Sub 1213 1213 1365;
  Mul 1365 95 1543; Mul 1124 135 1219; Add 1365 1365 1124; Add 1213 1213 1365; Mul 1365 79 1205;
  Mul 1124 85 1032; Mul 1386 81 1675; Sub 1124 1124 1386; Add 1365 1365 1124; Mul 1124 102 1354;
  Mul 1386 108 1675; Add 1124 1124 1386; Sub 1365 1365 1124; Mul 1386 269 1365; Mul 1467 275 1386;
  Mul 1265 283 1392; Add 1467 1467 1265; Sub 1467 1213 1467; Mul 1265 279 1467; Add 1270 1663 1265;
  Sub 1087 1642 1270; Mul 1654 292 1392; Mul 1641 288 1210; Mul 1297 287 1038; Mul 1474 108 1164;
  Mul 1395 9 1474; Add 1297 1297 1395; Mul 1395 102 1181; Mul 1051 108 1368; Add 1395 1395 1051;
  Mul 1051 8 1395; Mul 1161 289 1034; Sub 1051 1051 1161; Sub 1297 1297 1051; Mul 1051 264 1297;
  Add 1641 1641 1051; Mul 1051 291 1664; Mul 1474 8 1474; Mul 1161 287 1034; Sub 1474 1474 1161;
  Mul 1161 289 1038; Mul 1395 9 1395; Add 1161 1161 1395; Add 1474 1474 1161; Mul 1161 261 1474;
  Add 1051 1051 1161; Sub 1641 1641 1051; Mul 1051 281 1052; Mul 1161 278 1124; Sub 1051 1051 1161;
  Mul 1161 255 1188; Mul 1395 270 1546; Add 1161 1161 1395; Sub 1051 1051 1161; Add 1641 1641 1051;
  Mul 1051 213 1641; Mul 1051 269 1051; Mul 1161 275 1051; Add 1395 1654 1161; Mul 1084 288 1032;
  Mul 1554 256 1297; Add 1084 1084 1554; Mul 1554 295 1675; Mul 1370 102 1164; Mul 1309 215 1370;
  Add 1554 1554 1309; Sub 1084 1084 1554; Mul 1554 291 1205; Mul 1309 253 1474; Add 1554 1554 1309;
  Sub 1084 1084 1554; Mul 1554 296 1188; Mul 1309 254 1664; Mul 1317 261 1586; Add 1309 1309 1317;
  Mul 1317 257 1210; Mul 1116 264 1218; Add 1317 1317 1116; Add 1309 1309 1317; Mul 1317 270 1309;
  Add 1554 1554 1317; Mul 1317 274 1052; Mul 1116 278 1319; Sub 1317 1317 1116; Sub 1554 1554 1317;
  Add 1084 1084 1554; Mul 1554 213 1084; Mul 1554 269 1554; Mul 1317 282 1554; Mul 1116 297 1365;
  Add 1344 1317 1116; Mul 1017 216 1370; Mul 1196 295 1543; Sub 1017 1017 1196; Mul 1196 288 1620;
  Mul 1661 273 1297; Add 1196 1196 1661; Add 1017 1017 1196; Mul 1196 291 1219; Mul 1661 265 1474;
  Add 1196 1196 1661; Sub 1017 1017 1196; Mul 1196 274 1546; Mul 1661 255 1319; Sub 1196 1196 1661;
  Mul 1661 281 1309; Mul 1636 296 1124; Sub 1661 1661 1636; Sub 1196 1196 1661; Add 1017 1017 1196;
  Mul 1196 213 1017; Mul 1196 269 1196; Mul 1661 271 1196; Mul 1636 300 1660; Add 1648 1661 1636;
  Add 1161 1161 1654; Add 1654 1648 1161; Add 1344 1344 1654; Sub 1604 1395 1344; Add 1116 1116 1317;
  Add 1636 1636 1661; Add 1395 1636 1395; Add 1116 1116 1395; Sub 1161 1161 1116; Add 1604 1604 1161;
  Add 1265 1265 1663; Add 1441 1441 1665; Sub 1665 1265 1441; Add 1604 1604 1665; Sub 1087 1087 1604;
  Mul 1604 66 1205; Mul 1665 253 1055; Sub 1604 1604 1665; Mul 1665 53 1032].
Definition casadi_f0_147 : list instruction := [
  Mul 1663 256 1075; Add 1665 1665 1663; Sub 1604 1604 1665; Mul 1665 308 1604; Mul 1663 66 1586;
  Mul 1161 254 1055; Sub 1663 1663 1161; Mul 1161 257 1075; Mul 1661 53 1218; Add 1161 1161 1661;
  Sub 1663 1663 1161; Mul 1161 304 1663; Add 1665 1665 1161; Mul 1161 53 1205; Mul 1661 253 1075;
  Add 1161 1161 1661; Mul 1661 66 1032; Mul 1317 256 1055; Sub 1661 1661 1317; Add 1161 1161 1661;
  Mul 1661 311 1161; Mul 1317 254 1075; Mul 1389 53 1586; Add 1317 1317 1389; Mul 1389 66 1218;
  Mul 1555 257 1055; Sub 1389 1389 1555; Add 1317 1317 1389; Mul 1389 310 1317; Add 1661 1661 1389;
  Mul 1389 313 1675; Add 1555 1036 1112; Mul 1559 215 1555; Add 1389 1389 1559; Sub 1661 1661 1389;
  Add 1665 1665 1661; Mul 1661 213 1665; Mul 1389 330 1661; Mul 1559 66 1664; Mul 1607 261 1055;
  Sub 1559 1559 1607; Mul 1607 53 1210; Mul 1469 264 1075; Add 1607 1607 1469; Sub 1559 1559 1607;
  Mul 1607 314 1559; Mul 1469 53 1664; Mul 1318 261 1075; Add 1469 1469 1318; Mul 1318 66 1210;
  Mul 1598 264 1055; Sub 1318 1318 1598; Add 1469 1469 1318; Mul 1318 317 1469; Add 1607 1607 1318;
  Mul 1318 319 1607; Mul 1598 66 1219; Mul 1321 265 1055; Sub 1598 1598 1321; Mul 1321 53 1620;
  Mul 1275 273 1075; Add 1321 1321 1275; Sub 1598 1598 1321; Mul 1321 316 1598; Add 1318 1318 1321;
  Mul 1321 128 1559; Mul 1275 322 1469; Add 1321 1321 1275; Mul 1275 216 1321; Mul 1538 321 1543;
  Sub 1275 1275 1538; Add 1318 1318 1275; Mul 1275 131 1604; Mul 1538 68 1675; Add 1275 1275 1538;
  Sub 1318 1318 1275; Mul 1275 91 1219; Mul 1538 86 1620; Add 1275 1275 1538; Add 1275 1188 1275;
  Mul 1538 61 1598; Mul 1315 53 1219; Mul 1556 265 1075; Add 1315 1315 1556; Mul 1556 66 1620;
  Mul 1237 273 1055; Sub 1556 1556 1237; Add 1315 1315 1556; Mul 1556 54 1315; Mul 1237 47 1543;
  Sub 1556 1556 1237; Add 1538 1538 1556; Add 1538 1275 1538; Mul 1556 323 1538; Mul 1556 329 1556;
  Mul 1237 91 1664; Mul 1210 86 1210; Add 1237 1237 1210; Sub 1237 1237 1319; Mul 1210 61 1559;
  Mul 1593 54 1469; Add 1210 1210 1593; Add 1210 1237 1210; Mul 1593 326 1210; Add 1556 1556 1593;
  Sub 1556 1318 1556; Mul 1593 312 1556; Add 1678 1389 1593; Mul 1677 308 1598; Mul 1347 319 1663;
  Add 1677 1677 1347; Mul 1347 216 1555; Mul 1668 313 1543; Sub 1347 1347 1668; Mul 1668 311 1315;
  Mul 1454 327 1317; Add 1668 1668 1454; Add 1347 1347 1668; Add 1677 1677 1347; Mul 1347 213 1677;
  Mul 1668 338 1347; Mul 1454 304 1607; Mul 1156 316 1604; Add 1454 1454 1156; Mul 1321 215 1321;
  Mul 1156 321 1675; Add 1321 1321 1156; Sub 1454 1454 1321; Mul 1321 68 1543; Mul 1156 131 1598;
  Add 1321 1321 1156; Add 1454 1454 1321; Mul 1321 91 1205; Mul 1032 86 1032; Add 1321 1321 1032;
  Sub 1321 1321 1124; Mul 1032 61 1604; Mul 1156 54 1161; Mul 1154 47 1675; Sub 1156 1156 1154;
  Add 1032 1032 1156; Add 1032 1321 1032; Mul 1156 323 1032; Mul 1154 329 1156; Mul 1602 337 1210;
  Add 1154 1154 1602; Sub 1154 1454 1154; Mul 1602 333 1154; Add 1228 1668 1602].
Definition casadi_f0_148 : list instruction := [
  Sub 1113 1678 1228; Mul 1339 346 1210; Mul 1584 342 1559; Mul 1266 86 1112; Sub 1266 1266 1474;
  Mul 1474 66 1266; Mul 1144 341 1055; Sub 1474 1474 1144; Mul 1144 343 1075; Mul 1112 91 1112;
  Sub 1297 1297 1112; Mul 1112 53 1297; Add 1144 1144 1112; Sub 1474 1474 1144; Mul 1144 315 1474;
  Add 1584 1584 1144; Mul 1144 345 1469; Mul 1112 341 1075; Mul 1266 53 1266; Add 1112 1112 1266;
  Mul 1297 66 1297; Mul 1266 343 1055; Sub 1297 1297 1266; Add 1112 1112 1297; Mul 1297 318 1112;
  Add 1144 1144 1297; Add 1584 1584 1144; Mul 1144 332 1321; Mul 1297 335 1677; Add 1144 1144 1297;
  Mul 1297 309 1275; Mul 1266 324 1665; Add 1297 1297 1266; Sub 1144 1144 1297; Add 1584 1584 1144;
  Mul 1144 213 1584; Mul 1144 323 1144; Mul 1297 329 1144; Add 1266 1339 1297; Mul 1599 342 1604;
  Mul 1520 304 1474; Add 1599 1599 1520; Mul 1520 345 1161; Mul 1671 310 1112; Add 1520 1520 1671;
  Mul 1671 350 1675; Mul 1586 86 1586; Mul 1218 91 1218; Sub 1586 1586 1218; Sub 1370 1370 1586;
  Mul 1586 215 1370; Add 1671 1671 1586; Sub 1520 1520 1671; Add 1599 1599 1520; Mul 1520 349 1275;
  Mul 1671 308 1559; Mul 1586 315 1663; Add 1671 1671 1586; Mul 1586 311 1469; Mul 1218 318 1317;
  Add 1586 1586 1218; Add 1671 1671 1586; Mul 1586 324 1671; Add 1520 1520 1586; Mul 1586 332 1237;
  Mul 1218 328 1677; Add 1586 1586 1218; Sub 1520 1520 1586; Add 1599 1599 1520; Mul 1520 213 1599;
  Mul 1520 323 1520; Mul 1586 336 1520; Mul 1218 351 1032; Add 1346 1586 1218; Mul 1468 342 1598;
  Mul 1216 319 1474; Add 1468 1468 1216; Mul 1216 216 1370; Mul 1022 350 1543; Sub 1216 1216 1022;
  Mul 1022 345 1315; Mul 1130 327 1112; Add 1022 1022 1130; Add 1216 1216 1022; Add 1468 1468 1216;
  Mul 1216 309 1237; Mul 1022 328 1665; Add 1216 1216 1022; Mul 1022 349 1321; Mul 1130 335 1671;
  Add 1022 1022 1130; Sub 1216 1216 1022; Add 1468 1468 1216; Mul 1216 213 1468; Mul 1216 323 1216;
  Mul 1022 325 1216; Mul 1130 354 1538; Add 1682 1022 1130; Add 1297 1297 1339; Add 1339 1682 1297;
  Add 1346 1346 1339; Sub 1657 1266 1346; Add 1218 1218 1586; Add 1130 1130 1022; Add 1266 1130 1266;
  Add 1218 1218 1266; Sub 1297 1297 1218; Add 1657 1657 1297; Add 1602 1602 1668; Add 1593 1593 1389;
  Sub 1389 1602 1593; Add 1657 1657 1389; Sub 1113 1113 1657; Mul 1657 19 1604; Mul 1389 304 1053;
  Sub 1657 1657 1389; Mul 1389 35 1675; Mul 1668 215 1453; Add 1389 1389 1668; Add 1657 1657 1389;
  Mul 1389 362 1657; Mul 1668 19 1663; Mul 1297 308 1053; Sub 1668 1668 1297; Mul 1297 313 1453;
  Mul 1022 35 1555; Add 1297 1297 1022; Sub 1668 1668 1297; Mul 1297 358 1668; Add 1389 1389 1297;
  Mul 1297 35 1604; Mul 1022 304 1453; Add 1297 1297 1022; Mul 1022 19 1675; Mul 1586 215 1053;
  Sub 1022 1022 1586; Sub 1297 1297 1022; Mul 1022 365 1297; Mul 1586 308 1453; Mul 1287 35 1663;
  Add 1586 1586 1287; Mul 1287 19 1555; Mul 1322 313 1053; Sub 1287 1287 1322; Add 1586 1586 1287;
  Mul 1287 364 1586; Add 1022 1022 1287; Mul 1287 367 1161; Sub 1322 1317 1098].
Definition casadi_f0_149 : list instruction := [
  Mul 1372 310 1322; Add 1287 1287 1372; Add 1022 1022 1287; Add 1389 1389 1022; Mul 1022 213 1389;
  Mul 1287 385 1022; Mul 1372 19 1559; Mul 1488 315 1053; Sub 1372 1372 1488; Mul 1488 368 1372;
  Mul 1356 35 1559; Mul 1096 315 1453; Add 1356 1356 1096; Mul 1096 39 1356; Mul 1159 373 1469;
  Add 1096 1096 1159; Add 1488 1488 1096; Mul 1096 372 1488; Mul 1159 19 1598; Mul 1295 319 1053;
  Sub 1159 1159 1295; Mul 1295 216 1453; Mul 1449 35 1543; Sub 1295 1295 1449; Sub 1159 1159 1295;
  Mul 1295 370 1159; Add 1096 1096 1295; Mul 1295 39 1372; Mul 1449 376 1356; Add 1295 1295 1449;
  Mul 1449 377 1295; Mul 1562 35 1598; Mul 1338 319 1453; Add 1562 1562 1338; Mul 1338 19 1543;
  Mul 1314 216 1053; Add 1338 1338 1314; Sub 1562 1562 1338; Mul 1338 375 1562; Add 1449 1449 1338;
  Add 1096 1096 1449; Mul 1449 69 1297; Add 1096 1096 1449; Mul 1449 62 1598; Mul 1338 55 1315;
  Mul 1314 48 1543; Sub 1338 1338 1314; Add 1449 1449 1338; Add 1449 1275 1449; Mul 1338 380 1159;
  Mul 1314 24 1562; Mul 1455 31 1315; Add 1314 1314 1455; Add 1338 1338 1314; Add 1338 1449 1338;
  Mul 1314 378 1338; Mul 1314 384 1314; Mul 1455 62 1559; Mul 1371 55 1469; Add 1455 1455 1371;
  Add 1455 1237 1455; Mul 1371 380 1372; Mul 1563 24 1356; Mul 1655 31 1469; Add 1563 1563 1655;
  Add 1371 1371 1563; Add 1371 1455 1371; Mul 1563 382 1371; Add 1314 1314 1563; Sub 1314 1096 1314;
  Mul 1563 366 1314; Add 1655 1287 1563; Mul 1341 362 1159; Mul 1169 372 1668; Add 1341 1341 1169;
  Mul 1169 365 1562; Mul 1398 377 1586; Add 1169 1169 1398; Mul 1398 367 1315; Mul 1190 327 1322;
  Add 1398 1398 1190; Add 1169 1169 1398; Add 1341 1341 1169; Mul 1169 213 1341; Mul 1398 393 1169;
  Mul 1190 358 1488; Mul 1635 370 1657; Add 1190 1190 1635; Mul 1635 364 1295; Mul 1222 375 1297;
  Add 1635 1635 1222; Add 1190 1190 1635; Mul 1635 69 1562; Sub 1190 1190 1635; Mul 1635 62 1604;
  Mul 1222 55 1161; Mul 1103 48 1675; Sub 1222 1222 1103; Add 1635 1635 1222; Add 1635 1321 1635;
  Mul 1222 380 1657; Mul 1103 24 1297; Mul 1522 31 1161; Add 1103 1103 1522; Add 1222 1222 1103;
  Add 1222 1635 1222; Mul 1103 378 1222; Mul 1522 384 1103; Mul 1594 392 1371; Add 1522 1522 1594;
  Sub 1522 1190 1522; Mul 1594 388 1522; Add 1018 1398 1594; Sub 1359 1655 1018; Mul 1669 401 1371;
  Mul 1350 397 1372; Mul 1672 48 1317; Mul 1345 55 1555; Sub 1672 1672 1345; Sub 1474 1474 1672;
  Mul 1672 19 1474; Mul 1345 396 1053; Sub 1672 1672 1345; Mul 1345 398 1453; Mul 1376 55 1663;
  Mul 1317 62 1317; Sub 1376 1376 1317; Sub 1370 1370 1376; Mul 1376 35 1370; Add 1345 1345 1376;
  Sub 1672 1672 1345; Mul 1345 369 1672; Add 1350 1350 1345; Mul 1345 400 1356; Mul 1376 396 1453;
  Mul 1474 35 1474; Add 1376 1376 1474; Mul 1370 19 1370; Mul 1474 398 1053; Sub 1370 1370 1474;
  Add 1376 1376 1370; Mul 1370 371 1376; Add 1345 1345 1370; Mul 1370 402 1469; Mul 1555 62 1555;
  Mul 1663 48 1663; Sub 1555 1555 1663; Sub 1112 1112 1555; Mul 1555 318 1112].
Definition casadi_f0_150 : list instruction := [
  Add 1370 1370 1555; Add 1345 1345 1370; Add 1350 1350 1345; Mul 1345 387 1635; Mul 1370 390 1341;
  Add 1345 1345 1370; Mul 1370 363 1449; Mul 1555 379 1389; Add 1370 1370 1555; Sub 1345 1345 1370;
  Add 1350 1350 1345; Mul 1345 213 1350; Mul 1345 378 1345; Mul 1370 384 1345; Add 1555 1669 1370;
  Mul 1663 397 1657; Mul 1474 358 1672; Add 1663 1663 1474; Mul 1474 400 1297; Mul 1317 364 1376;
  Add 1474 1474 1317; Mul 1317 402 1161; Mul 1400 310 1112; Add 1317 1317 1400; Add 1474 1474 1317;
  Add 1663 1663 1474; Mul 1474 405 1449; Mul 1317 362 1372; Mul 1400 369 1668; Add 1317 1317 1400;
  Mul 1400 365 1356; Mul 1199 371 1586; Add 1400 1400 1199; Mul 1199 367 1469; Mul 1443 318 1322;
  Add 1199 1199 1443; Add 1400 1400 1199; Add 1317 1317 1400; Mul 1400 379 1317; Add 1474 1474 1400;
  Mul 1400 387 1455; Mul 1199 383 1341; Add 1400 1400 1199; Sub 1474 1474 1400; Add 1663 1663 1474;
  Mul 1474 213 1663; Mul 1474 378 1474; Mul 1400 391 1474; Mul 1199 406 1222; Add 1443 1400 1199;
  Mul 1514 397 1159; Mul 1307 372 1672; Add 1514 1514 1307; Mul 1307 400 1562; Mul 1531 377 1376;
  Add 1307 1307 1531; Mul 1531 402 1315; Mul 1650 327 1112; Add 1531 1531 1650; Add 1307 1307 1531;
  Add 1514 1514 1307; Mul 1307 363 1455; Mul 1531 383 1389; Add 1307 1307 1531; Mul 1531 405 1635;
  Mul 1650 390 1317; Add 1531 1531 1650; Sub 1307 1307 1531; Add 1514 1514 1307; Mul 1307 213 1514;
  Mul 1307 378 1307; Mul 1531 381 1307; Mul 1650 409 1338; Add 1308 1531 1650; Add 1370 1370 1669;
  Add 1669 1308 1370; Add 1443 1443 1669; Sub 1223 1555 1443; Add 1199 1199 1400; Add 1650 1650 1531;
  Add 1555 1650 1555; Add 1199 1199 1555; Sub 1370 1370 1199; Add 1223 1223 1370; Add 1594 1594 1398;
  Add 1563 1563 1287; Sub 1287 1594 1563; Add 1223 1223 1287; Sub 1359 1359 1223; Mul 1223 413 1657;
  Sub 1287 1668 1611; Mul 1398 358 1287; Add 1223 1223 1398; Mul 1398 16 1297; Mul 1370 364 1079;
  Sub 1398 1398 1370; Mul 1370 15 1161; Mul 1531 310 1047; Add 1370 1370 1531; Sub 1398 1398 1370;
  Mul 1370 419 1398; Mul 1531 16 1586; Mul 1400 365 1079; Sub 1531 1531 1400; Mul 1400 367 1047;
  Mul 1433 15 1322; Add 1400 1400 1433; Sub 1531 1531 1400; Mul 1400 418 1531; Add 1370 1370 1400;
  Mul 1400 15 1297; Mul 1433 364 1047; Add 1400 1400 1433; Mul 1433 16 1161; Mul 1284 310 1079;
  Sub 1433 1433 1284; Add 1400 1400 1433; Mul 1433 422 1400; Mul 1284 365 1047; Mul 1115 15 1586;
  Add 1284 1284 1115; Mul 1115 16 1322; Mul 1351 367 1079; Sub 1115 1115 1351; Add 1284 1284 1115;
  Mul 1115 421 1284; Add 1433 1433 1115; Add 1370 1370 1433; Add 1223 1223 1370; Mul 1370 213 1223;
  Mul 1433 439 1370; Mul 1115 423 1372; Mul 1351 16 1356; Mul 1484 371 1079; Sub 1351 1351 1484;
  Mul 1484 15 1469; Mul 1652 318 1047; Add 1484 1484 1652; Sub 1351 1351 1484; Mul 1484 40 1351;
  Mul 1652 15 1356; Mul 1192 371 1047; Add 1652 1652 1192; Mul 1192 16 1469; Mul 1440 318 1079;
  Sub 1192 1192 1440; Add 1652 1652 1192; Mul 1192 42 1652; Add 1484 1484 1192].
Definition casadi_f0_151 : list instruction := [
  Add 1115 1115 1484; Mul 1484 372 1115; Mul 1192 424 1159; Add 1484 1484 1192; Mul 1192 40 1372;
  Mul 1440 14 1351; Mul 1426 18 1652; Add 1440 1440 1426; Add 1192 1192 1440; Mul 1440 429 1192;
  Mul 1426 16 1562; Mul 1171 377 1079; Sub 1426 1426 1171; Mul 1171 15 1315; Mul 1431 327 1047;
  Add 1171 1171 1431; Sub 1426 1426 1171; Mul 1171 428 1426; Add 1440 1440 1171; Add 1484 1484 1440;
  Mul 1440 43 1398; Mul 1171 431 1657; Sub 1440 1440 1171; Add 1484 1484 1440; Mul 1440 198 1159;
  Mul 1171 25 1562; Mul 1431 32 1315; Add 1171 1171 1431; Add 1440 1440 1171; Add 1440 1449 1440;
  Mul 1171 433 1159; Mul 1431 26 1426; Mul 1189 15 1562; Mul 1439 377 1047; Add 1189 1189 1439;
  Mul 1439 16 1315; Mul 1411 327 1079; Sub 1439 1439 1411; Add 1189 1189 1439; Mul 1439 28 1189;
  Add 1431 1431 1439; Add 1171 1171 1431; Add 1171 1440 1171; Mul 1431 430 1171; Mul 1431 438 1431;
  Mul 1439 198 1372; Mul 1411 25 1356; Mul 1528 32 1469; Add 1411 1411 1528; Add 1439 1439 1411;
  Add 1439 1455 1439; Mul 1411 433 1372; Mul 1528 26 1351; Mul 1362 28 1652; Add 1528 1528 1362;
  Add 1411 1411 1528; Add 1411 1439 1411; Mul 1528 435 1411; Add 1431 1431 1528; Sub 1431 1484 1431;
  Mul 1528 420 1431; Add 1362 1433 1528; Mul 1282 413 1159; Mul 1311 372 1287; Add 1282 1282 1311;
  Mul 1311 419 1426; Mul 1245 429 1531; Add 1311 1311 1245; Mul 1245 422 1189; Mul 1403 436 1284;
  Add 1245 1245 1403; Add 1311 1311 1245; Add 1282 1282 1311; Mul 1311 213 1282; Mul 1245 447 1311;
  Mul 1403 358 1115; Mul 1360 424 1657; Add 1403 1403 1360; Mul 1360 418 1192; Mul 1375 428 1398;
  Add 1360 1360 1375; Add 1403 1403 1360; Mul 1360 43 1426; Mul 1375 431 1159; Sub 1360 1360 1375;
  Sub 1403 1403 1360; Mul 1360 198 1657; Mul 1375 25 1297; Mul 1513 32 1161; Add 1375 1375 1513;
  Add 1360 1360 1375; Add 1360 1635 1360; Mul 1375 433 1657; Mul 1513 26 1398; Mul 1150 28 1400;
  Add 1513 1513 1150; Add 1375 1375 1513; Add 1375 1360 1375; Mul 1513 430 1375; Mul 1150 438 1513;
  Mul 1256 446 1411; Add 1150 1150 1256; Sub 1150 1403 1150; Mul 1256 442 1150; Add 1509 1245 1256;
  Sub 1541 1362 1509; Mul 1300 455 1411; Mul 1134 450 1372; Mul 1579 25 1322; Mul 1436 32 1586;
  Sub 1579 1579 1436; Sub 1672 1672 1579; Mul 1579 369 1672; Add 1134 1134 1579; Mul 1579 453 1351;
  Mul 1436 32 1668; Mul 1322 198 1322; Sub 1436 1436 1322; Sub 1376 1376 1436; Mul 1436 16 1376;
  Mul 1322 452 1079; Sub 1436 1436 1322; Mul 1322 454 1047; Mul 1586 198 1586; Mul 1668 25 1668;
  Sub 1586 1586 1668; Sub 1112 1112 1586; Mul 1586 15 1112; Add 1322 1322 1586; Sub 1436 1436 1322;
  Mul 1322 425 1436; Add 1579 1579 1322; Mul 1322 456 1652; Mul 1586 452 1047; Mul 1376 15 1376;
  Add 1586 1586 1376; Mul 1112 16 1112; Mul 1376 454 1079; Sub 1112 1112 1376; Add 1586 1586 1112;
  Mul 1112 427 1586; Add 1322 1322 1112; Add 1579 1579 1322; Add 1134 1134 1579; Mul 1579 441 1360;
  Mul 1322 444 1282; Add 1579 1579 1322; Mul 1322 417 1440; Mul 1112 432 1223].
Definition casadi_f0_152 : list instruction := [
  Add 1322 1322 1112; Sub 1579 1579 1322; Add 1134 1134 1579; Mul 1579 213 1134; Mul 1579 430 1579;
  Mul 1322 438 1579; Add 1112 1300 1322; Mul 1376 450 1657; Mul 1668 358 1672; Add 1376 1376 1668;
  Mul 1668 453 1398; Mul 1417 418 1436; Add 1668 1668 1417; Mul 1400 456 1400; Mul 1417 421 1586;
  Add 1400 1400 1417; Add 1668 1668 1400; Add 1376 1376 1668; Mul 1668 459 1440; Mul 1400 413 1372;
  Mul 1287 369 1287; Add 1400 1400 1287; Mul 1287 419 1351; Mul 1531 425 1531; Add 1287 1287 1531;
  Mul 1652 422 1652; Mul 1284 427 1284; Add 1652 1652 1284; Add 1287 1287 1652; Add 1400 1400 1287;
  Mul 1287 432 1400; Add 1668 1668 1287; Mul 1287 441 1439; Mul 1652 437 1282; Add 1287 1287 1652;
  Sub 1668 1668 1287; Add 1376 1376 1668; Mul 1668 213 1376; Mul 1668 430 1668; Mul 1287 445 1668;
  Mul 1652 460 1375; Add 1284 1287 1652; Mul 1531 450 1159; Mul 1672 372 1672; Add 1531 1531 1672;
  Mul 1672 453 1426; Mul 1436 429 1436; Add 1672 1672 1436; Mul 1436 456 1189; Mul 1586 436 1586;
  Add 1436 1436 1586; Add 1672 1672 1436; Add 1531 1531 1672; Mul 1672 417 1439; Mul 1436 437 1223;
  Add 1672 1672 1436; Mul 1436 459 1360; Mul 1586 444 1400; Add 1436 1436 1586; Sub 1672 1672 1436;
  Add 1531 1531 1672; Mul 1672 213 1531; Mul 1672 430 1672; Mul 1436 434 1672; Mul 1586 463 1171;
  Add 1417 1436 1586; Add 1322 1322 1300; Add 1300 1417 1322; Add 1284 1284 1300; Sub 1625 1112 1284;
  Add 1652 1652 1287; Add 1586 1586 1436; Add 1112 1586 1112; Add 1652 1652 1112; Sub 1322 1322 1652;
  Add 1625 1625 1322; Add 1256 1256 1245; Add 1528 1528 1433; Sub 1433 1256 1528; Add 1625 1625 1433;
  Sub 1541 1541 1625; Add 1359 1359 1541; Add 1113 1113 1359; Add 1087 1087 1113; Add 1290 1290 1087;
  Mul 1290 0 1290; Mul 1087 235 1081; Add 1290 1290 1087; Mul 1224 261 1224; Mul 1087 262 1664;
  Add 1224 1224 1087; Mul 1607 315 1607; Mul 1087 316 1559; Add 1607 1607 1087; Mul 1488 369 1488;
  Mul 1087 370 1372; Add 1488 1488 1087; Mul 1295 371 1295; Mul 1087 375 1356; Add 1295 1295 1087;
  Add 1488 1488 1295; Mul 1115 369 1115; Mul 1295 424 1372; Add 1115 1115 1295; Mul 1192 425 1192;
  Mul 1295 428 1351; Add 1192 1192 1295; Add 1115 1115 1192; Add 1192 1488 1115; Sub 1295 1222 1375;
  Mul 1087 480 1295; Sub 1113 1338 1171; Mul 1625 1197 1113; Add 1433 1087 1625; Mul 1433 20 1433;
  Add 1192 1192 1433; Add 1433 1607 1192; Mul 1245 485 1222; Mul 1322 50 1375; Add 1245 1245 1322;
  Sub 1322 1032 1245; Mul 1436 487 1322; Mul 1287 485 1338; Mul 1278 50 1171; Add 1287 1287 1278;
  Sub 1278 1538 1287; Mul 1627 1286 1278; Add 1495 1436 1627; Mul 1495 37 1495; Add 1433 1433 1495;
  Add 1495 1224 1433; Mul 1401 493 1032; Mul 1180 83 1245; Add 1401 1401 1180; Sub 1180 1365 1401;
  Mul 1519 495 1180; Mul 1640 493 1538; Mul 1582 83 1287; Add 1640 1640 1582; Sub 1582 1660 1640;
  Mul 1646 1294 1582; Add 1618 1519 1646; Mul 1618 80 1618; Add 1495 1495 1618; Mul 1618 237 1451;
  Mul 1535 113 1535; Sub 1618 1618 1535; Sub 1535 1495 1618; Mul 1549 501 1660].
Definition casadi_f0_153 : list instruction := [
  Mul 1537 104 1640; Add 1549 1549 1537; Sub 1537 1645 1549; Mul 1335 1299 1537; Mul 1518 501 1365;
  Mul 1127 104 1401; Add 1518 1518 1127; Add 1127 1242 1518; Mul 1239 503 1127; Sub 1393 1335 1239;
  Mul 1393 100 1393; Add 1535 1535 1393; Mul 1535 508 1535; Mul 1393 216 1532; Mul 1387 219 1543;
  Sub 1393 1393 1387; Mul 1387 215 1173; Mul 1408 227 1675; Add 1387 1387 1408; Add 1393 1393 1387;
  Mul 1387 500 1393; Add 1535 1535 1387; Add 1387 1190 1403; Mul 1295 20 1295; Mul 1408 512 1295;
  Sub 1230 1371 1411; Mul 1337 511 1230; Add 1408 1408 1337; Sub 1387 1387 1408; Add 1408 1454 1387;
  Mul 1322 37 1322; Mul 1337 516 1322; Mul 1444 485 1371; Mul 1624 50 1411; Add 1444 1444 1624;
  Sub 1624 1210 1444; Mul 1450 514 1624; Add 1337 1337 1450; Sub 1408 1408 1337; Add 1337 1213 1408;
  Mul 1180 80 1180; Mul 1450 520 1180; Mul 1071 493 1210; Mul 1323 83 1444; Add 1071 1071 1323;
  Sub 1323 1392 1071; Mul 1364 518 1323; Add 1450 1450 1364; Sub 1337 1337 1450; Add 1450 1132 1337;
  Mul 1127 100 1127; Mul 1364 524 1127; Mul 1363 501 1392; Mul 1183 104 1071; Add 1363 1363 1183;
  Add 1183 1448 1363; Mul 1208 522 1183; Add 1364 1364 1208; Add 1450 1450 1364; Mul 1364 526 1450;
  Mul 1208 221 1451; Mul 1368 113 1368; Add 1208 1208 1368; Mul 1164 114 1164; Mul 1368 218 1074;
  Sub 1164 1164 1368; Add 1208 1208 1164; Mul 1164 216 1208; Mul 1368 525 1543; Sub 1164 1164 1368;
  Mul 1368 521 1164; Add 1364 1364 1368; Add 1368 1096 1484; Mul 1313 20 1113; Mul 1313 512 1313;
  Mul 1536 529 1230; Add 1313 1313 1536; Sub 1368 1368 1313; Add 1313 1318 1368; Mul 1536 37 1278;
  Mul 1536 516 1536; Mul 1644 531 1624; Add 1536 1536 1644; Sub 1313 1313 1536; Add 1536 1425 1313;
  Mul 1644 80 1582; Mul 1644 520 1644; Mul 1429 533 1323; Add 1644 1644 1429; Sub 1536 1536 1644;
  Add 1644 1649 1536; Mul 1429 100 1537; Mul 1429 524 1429; Mul 1215 535 1183; Sub 1429 1429 1215;
  Sub 1644 1644 1429; Mul 1429 536 1644; Mul 1215 215 1208; Mul 1102 525 1675; Add 1215 1215 1102;
  Mul 1102 534 1215; Add 1429 1429 1102; Add 1364 1364 1429; Sub 1535 1535 1364; Mul 1364 120 1518;
  Mul 1429 527 1242; Sub 1364 1364 1429; Mul 1429 539 1364; Mul 1102 120 1363; Mul 1163 527 1448;
  Sub 1102 1102 1163; Mul 1163 526 1102; Mul 1209 538 1164; Add 1163 1163 1209; Mul 1209 508 1364;
  Mul 1133 537 1393; Add 1209 1209 1133; Add 1163 1163 1209; Mul 1209 540 1208; Mul 1133 214 1543;
  Mul 1246 525 1133; Sub 1209 1209 1246; Sub 1163 1163 1209; Mul 1163 141 1163; Mul 1246 537 1163;
  Add 1429 1429 1246; Mul 1246 527 1645; Mul 1388 120 1549; Add 1246 1246 1388; Mul 1388 546 1246;
  Mul 1686 544 1208; Mul 1694 214 1675; Mul 1698 525 1694; Add 1686 1686 1698; Mul 1698 508 1246;
  Mul 1701 543 1393; Add 1698 1698 1701; Mul 1701 536 1102; Mul 1687 538 1215; Add 1701 1701 1687;
  Add 1698 1698 1701; Sub 1698 1686 1698; Mul 1698 141 1698; Mul 1701 543 1698; Add 1388 1388 1701;
  Sub 1429 1429 1388; Add 1535 1535 1429; Mul 1429 553 1175; Mul 1388 238 1674].
Definition casadi_f0_154 : list instruction := [
  Mul 1673 236 1673; Mul 1701 144 1543; Sub 1673 1673 1701; Add 1388 1388 1673; Mul 1673 224 1388;
  Mul 1701 542 1674; Add 1673 1673 1701; Mul 1674 144 1674; Mul 1701 549 1543; Sub 1674 1674 1701;
  Mul 1701 216 1674; Mul 1687 548 1543; Sub 1701 1701 1687; Add 1673 1673 1701; Mul 1701 1334 1242;
  Mul 1687 1336 1448; Add 1670 1701 1687; Mul 1670 212 1670; Sub 1670 1673 1670; Mul 1688 249 1670;
  Add 1681 1429 1688; Mul 1129 556 1679; Mul 1388 220 1388; Mul 1354 542 1354; Sub 1388 1388 1354;
  Mul 1674 215 1674; Mul 1354 548 1675; Add 1674 1674 1354; Sub 1388 1388 1674; Mul 1674 241 1645;
  Mul 1291 225 1291; Sub 1674 1674 1291; Sub 1674 1388 1674; Mul 1291 244 1674; Add 1354 1129 1291;
  Sub 1681 1681 1354; Mul 1354 242 1143; Mul 1176 223 1448; Sub 1354 1354 1176; Mul 1176 1342 1645;
  Sub 1701 1176 1701; Mul 1701 212 1701; Sub 1701 1701 1618; Mul 1462 249 1701; Mul 1302 551 1175;
  Add 1457 1462 1302; Mul 1407 560 1666; Mul 1276 213 1208; Mul 1157 243 1276; Add 1578 1407 1157;
  Sub 1457 1457 1578; Add 1457 1354 1457; Sub 1681 1681 1457; Sub 1457 1618 1673; Mul 1578 219 1457;
  Mul 1137 557 1532; Add 1578 1578 1137; Mul 1137 227 1388; Mul 1512 555 1173; Add 1137 1137 1512;
  Add 1578 1578 1137; Mul 1137 525 1132; Mul 1512 239 1208; Add 1137 1137 1512; Add 1578 1578 1137;
  Mul 1137 340 1645; Mul 1512 231 1173; Mul 1416 227 1242; Sub 1512 1512 1416; Mul 1416 219 1645;
  Mul 1320 225 1532; Add 1416 1416 1320; Sub 1512 1512 1416; Mul 1512 212 1512; Mul 1416 225 1512;
  Add 1137 1137 1416; Mul 1416 242 1532; Mul 1320 219 1448; Sub 1416 1416 1320; Mul 1320 231 1208;
  Mul 1572 525 1242; Sub 1320 1320 1572; Sub 1416 1416 1320; Sub 1416 1667 1416; Mul 1416 212 1416;
  Mul 1320 242 1416; Mul 1572 559 1448; Sub 1320 1320 1572; Add 1137 1137 1320; Sub 1578 1578 1137;
  Mul 1578 213 1578; Sub 1681 1681 1578; Mul 1137 567 1460; Mul 1320 260 1219; Mul 1572 263 1620;
  Mul 1410 127 1543; Sub 1572 1572 1410; Add 1320 1320 1572; Mul 1572 265 1320; Mul 1410 547 1219;
  Add 1572 1572 1410; Mul 1219 127 1219; Mul 1620 268 1620; Mul 1410 563 1543; Sub 1620 1620 1410;
  Add 1219 1219 1620; Mul 1620 216 1219; Mul 1410 562 1543; Sub 1620 1620 1410; Add 1572 1572 1620;
  Mul 1620 1138 1365; Mul 1410 1357 1392; Add 1203 1620 1410; Mul 1203 269 1203; Add 1203 1572 1203;
  Mul 1564 258 1203; Add 1435 1137 1564; Mul 1269 570 1142; Mul 1320 253 1320; Mul 1205 547 1205;
  Add 1320 1320 1205; Mul 1219 215 1219; Mul 1205 562 1675; Add 1219 1219 1205; Sub 1320 1320 1219;
  Mul 1664 135 1664; Sub 1320 1320 1664; Mul 1386 271 1386; Mul 1664 283 1660; Add 1386 1386 1664;
  Sub 1386 1320 1386; Mul 1664 279 1386; Add 1219 1269 1664; Sub 1435 1435 1219; Mul 1219 300 1392;
  Mul 1205 275 1196; Add 1576 1219 1205; Mul 1452 271 1051; Mul 1019 292 1660; Add 1274 1452 1019;
  Add 1576 1576 1274; Mul 1274 1366 1660; Add 1620 1620 1274; Mul 1620 269 1620; Add 1620 1224 1620;
  Mul 1466 258 1620; Mul 1424 565 1460; Add 1310 1466 1424; Mul 1413 574 1467].
Definition casadi_f0_155 : list instruction := [
  Mul 1422 213 1309; Mul 1447 284 1422; Add 1580 1413 1447; Sub 1310 1310 1580; Add 1576 1576 1310;
  Sub 1435 1435 1576; Mul 1576 571 1546; Add 1310 1572 1224; Mul 1580 255 1310; Sub 1576 1576 1580;
  Mul 1580 278 1320; Mul 1610 569 1052; Add 1580 1580 1610; Add 1576 1576 1580; Mul 1580 296 1213;
  Mul 1610 280 1309; Add 1580 1580 1610; Add 1576 1576 1580; Mul 1580 471 1660; Mul 1610 278 1365;
  Mul 1225 282 1052; Add 1610 1610 1225; Mul 1225 255 1660; Mul 1542 271 1546; Add 1225 1225 1542;
  Sub 1610 1610 1225; Sub 1610 1641 1610; Mul 1610 269 1610; Mul 1225 271 1610; Add 1580 1580 1225;
  Mul 1225 573 1392; Mul 1542 255 1392; Mul 1355 275 1546; Add 1542 1542 1355; Mul 1355 296 1365;
  Mul 1373 282 1309; Add 1355 1355 1373; Sub 1542 1542 1355; Sub 1542 1017 1542; Mul 1542 269 1542;
  Mul 1355 275 1542; Add 1225 1225 1355; Sub 1580 1580 1225; Add 1576 1576 1580; Mul 1576 213 1576;
  Sub 1435 1435 1576; Mul 1580 581 1661; Mul 1225 314 1598; Mul 1355 317 1315; Mul 1373 128 1543;
  Sub 1355 1355 1373; Add 1225 1225 1355; Mul 1355 319 1225; Mul 1373 561 1598; Add 1355 1355 1373;
  Mul 1598 128 1598; Mul 1373 322 1315; Mul 1166 577 1543; Sub 1373 1373 1166; Add 1598 1598 1373;
  Mul 1373 216 1598; Mul 1166 576 1543; Sub 1373 1373 1166; Add 1355 1355 1373; Mul 1373 1379 1032;
  Mul 1166 1381 1210; Add 1544 1373 1166; Mul 1544 323 1544; Add 1544 1355 1544; Mul 1253 312 1544;
  Add 1566 1580 1253; Mul 1524 584 1347; Mul 1225 304 1225; Mul 1604 561 1604; Add 1225 1225 1604;
  Mul 1598 215 1598; Mul 1604 576 1675; Add 1598 1598 1604; Sub 1225 1225 1598; Mul 1559 131 1559;
  Sub 1225 1225 1559; Mul 1156 325 1156; Mul 1559 337 1538; Add 1156 1156 1559; Sub 1156 1225 1156;
  Mul 1559 333 1156; Add 1598 1524 1559; Sub 1566 1566 1598; Mul 1598 354 1210; Mul 1604 329 1216;
  Add 1517 1598 1604; Mul 1577 325 1144; Mul 1327 346 1538; Add 1402 1577 1327; Add 1517 1517 1402;
  Mul 1402 1390 1538; Add 1373 1373 1402; Mul 1373 323 1373; Add 1373 1607 1373; Mul 1571 312 1373;
  Mul 1361 579 1661; Add 1573 1571 1361; Mul 1109 588 1154; Mul 1271 213 1671; Mul 1174 338 1271;
  Add 1259 1109 1174; Sub 1573 1573 1259; Add 1517 1517 1573; Sub 1566 1566 1517; Mul 1517 585 1665;
  Add 1573 1355 1607; Mul 1259 309 1573; Sub 1517 1517 1259; Mul 1259 332 1225; Mul 1243 583 1677;
  Add 1259 1259 1243; Add 1517 1517 1259; Mul 1259 349 1454; Mul 1243 334 1671; Add 1259 1259 1243;
  Add 1517 1517 1259; Mul 1259 473 1538; Mul 1243 332 1032; Mul 1340 336 1677; Add 1243 1243 1340;
  Mul 1340 309 1538; Mul 1587 325 1665; Add 1340 1340 1587; Sub 1243 1243 1340; Sub 1243 1584 1243;
  Mul 1243 323 1243; Mul 1340 325 1243; Add 1259 1259 1340; Mul 1340 587 1210; Mul 1587 309 1210;
  Mul 1268 329 1665; Add 1587 1587 1268; Mul 1268 349 1032; Mul 1333 336 1671; Add 1268 1268 1333;
  Sub 1587 1587 1268; Sub 1587 1468 1587; Mul 1587 323 1587; Mul 1268 329 1587; Add 1340 1340 1268;
  Sub 1259 1259 1340; Add 1517 1517 1259; Mul 1517 213 1517; Sub 1566 1566 1517].
Definition casadi_f0_156 : list instruction := [
  Mul 1259 594 1022; Mul 1340 368 1159; Mul 1268 39 1562; Mul 1333 373 1315; Add 1268 1268 1333;
  Add 1340 1340 1268; Mul 1268 372 1340; Mul 1333 575 1159; Add 1268 1268 1333; Mul 1333 39 1159;
  Mul 1526 376 1562; Add 1333 1333 1526; Mul 1526 377 1333; Mul 1562 590 1562; Add 1526 1526 1562;
  Add 1268 1268 1526; Mul 1526 1404 1222; Mul 1562 1405 1371; Add 1168 1526 1562; Mul 1168 378 1168;
  Add 1168 1268 1168; Mul 1303 366 1168; Add 1603 1259 1303; Mul 1140 597 1169; Mul 1340 358 1340;
  Mul 1581 575 1657; Add 1340 1340 1581; Mul 1333 364 1333; Mul 1297 590 1297; Add 1333 1333 1297;
  Add 1340 1340 1333; Mul 1356 69 1356; Add 1340 1340 1356; Mul 1103 381 1103; Mul 1356 392 1338;
  Add 1103 1103 1356; Sub 1103 1340 1103; Mul 1356 388 1103; Add 1333 1140 1356; Sub 1603 1603 1333;
  Mul 1333 409 1371; Mul 1297 384 1307; Add 1581 1333 1297; Mul 1633 381 1345; Mul 1473 401 1338;
  Add 1523 1633 1473; Add 1581 1581 1523; Mul 1523 1414 1338; Add 1526 1526 1523; Mul 1526 378 1526;
  Add 1526 1488 1526; Mul 1595 366 1526; Mul 1575 592 1022; Add 1583 1595 1575; Mul 1525 601 1522;
  Mul 1529 213 1317; Mul 1146 393 1529; Add 1122 1525 1146; Sub 1583 1583 1122; Add 1581 1581 1583;
  Sub 1603 1603 1581; Mul 1581 598 1389; Add 1583 1268 1488; Mul 1122 363 1583; Sub 1581 1581 1122;
  Mul 1122 387 1340; Mul 1409 596 1341; Add 1122 1122 1409; Add 1581 1581 1122; Mul 1122 405 1190;
  Mul 1409 389 1317; Add 1122 1122 1409; Add 1581 1581 1122; Mul 1122 475 1338; Mul 1409 387 1222;
  Mul 1378 391 1341; Add 1409 1409 1378; Mul 1378 363 1338; Mul 1597 381 1389; Add 1378 1378 1597;
  Sub 1409 1409 1378; Sub 1409 1350 1409; Mul 1409 378 1409; Mul 1378 381 1409; Add 1122 1122 1378;
  Mul 1378 600 1371; Mul 1597 363 1371; Mul 1481 384 1389; Add 1597 1597 1481; Mul 1481 405 1222;
  Mul 1093 391 1317; Add 1481 1481 1093; Sub 1597 1597 1481; Sub 1597 1514 1597; Mul 1597 378 1597;
  Mul 1481 384 1597; Add 1378 1378 1481; Sub 1122 1122 1378; Add 1581 1581 1122; Mul 1581 213 1581;
  Sub 1603 1603 1581; Mul 1122 607 1370; Mul 1378 423 1159; Mul 1481 40 1426; Mul 1093 42 1189;
  Add 1481 1481 1093; Add 1378 1378 1481; Mul 1481 372 1378; Mul 1093 589 1159; Add 1481 1481 1093;
  Mul 1093 40 1159; Mul 1105 14 1426; Mul 1189 18 1189; Add 1105 1105 1189; Add 1093 1093 1105;
  Mul 1105 429 1093; Mul 1426 603 1426; Add 1105 1105 1426; Add 1481 1481 1105; Mul 1105 1428 1375;
  Mul 1426 1264 1411; Add 1189 1105 1426; Mul 1189 430 1189; Add 1189 1481 1189; Mul 1117 420 1189;
  Add 1128 1122 1117; Mul 1094 610 1311; Mul 1378 358 1378; Mul 1617 589 1657; Add 1378 1378 1617;
  Mul 1093 418 1093; Mul 1398 603 1398; Add 1093 1093 1398; Add 1378 1378 1093; Mul 1351 43 1351;
  Mul 1093 431 1372; Sub 1351 1351 1093; Add 1378 1378 1351; Mul 1513 434 1513; Mul 1351 446 1171;
  Add 1513 1513 1351; Sub 1513 1378 1513; Mul 1351 442 1513; Add 1093 1094 1351; Sub 1128 1128 1093;
  Mul 1093 463 1411; Mul 1398 438 1672; Add 1617 1093 1398; Mul 1616 434 1579].
Definition casadi_f0_157 : list instruction := [
  Mul 1185 455 1171; Add 1279 1616 1185; Add 1617 1617 1279; Mul 1279 1437 1171; Add 1105 1105 1279;
  Mul 1105 430 1105; Add 1105 1115 1105; Mul 1485 420 1105; Mul 1561 605 1370; Add 1497 1485 1561;
  Mul 1432 614 1150; Mul 1353 213 1400; Mul 1131 447 1353; Add 1539 1432 1131; Sub 1497 1497 1539;
  Add 1617 1617 1497; Sub 1128 1128 1617; Mul 1617 13 1223; Add 1497 1481 1115; Mul 1539 417 1497;
  Sub 1617 1617 1539; Mul 1539 441 1378; Mul 1515 609 1282; Add 1539 1539 1515; Add 1617 1617 1539;
  Mul 1539 459 1403; Mul 1515 443 1400; Add 1539 1539 1515; Add 1617 1617 1539; Mul 1539 477 1171;
  Mul 1515 441 1375; Mul 1202 445 1282; Add 1515 1515 1202; Mul 1202 417 1171; Mul 1182 434 1223;
  Add 1202 1202 1182; Sub 1515 1515 1202; Sub 1515 1134 1515; Mul 1515 430 1515; Mul 1202 434 1515;
  Add 1539 1539 1202; Mul 1202 611 1411; Mul 1182 417 1411; Mul 1235 438 1223; Add 1182 1182 1235;
  Mul 1235 459 1375; Mul 1438 445 1400; Add 1235 1235 1438; Sub 1182 1182 1235; Sub 1182 1531 1182;
  Mul 1182 430 1182; Mul 1235 438 1182; Add 1202 1202 1235; Sub 1539 1539 1202; Add 1617 1617 1539;
  Mul 1617 213 1617; Sub 1128 1128 1617; Add 1603 1603 1128; Add 1566 1566 1603; Add 1435 1435 1566;
  Add 1681 1681 1435; Mul 1681 216 1681; Mul 1539 554 1543; Sub 1681 1681 1539; Mul 1539 242 1442;
  Mul 1202 230 1448; Sub 1539 1539 1202; Mul 1202 560 1187; Mul 1235 248 1276; Add 1438 1202 1235;
  Mul 1701 244 1701; Mul 1608 551 1679; Add 1123 1701 1608; Sub 1438 1438 1123; Sub 1438 1539 1438;
  Mul 1123 556 1175; Mul 1283 249 1674; Add 1191 1123 1283; Mul 1483 558 1679; Sub 1176 1176 1687;
  Mul 1176 212 1176; Add 1176 1457 1176; Mul 1687 244 1176; Add 1496 1483 1687; Sub 1191 1191 1496;
  Add 1438 1438 1191; Mul 1191 219 1388; Mul 1496 555 1532; Add 1191 1191 1496; Mul 1496 227 1673;
  Mul 1257 550 1173; Add 1496 1496 1257; Add 1191 1191 1496; Mul 1496 525 1649; Mul 1257 246 1208;
  Add 1496 1496 1257; Add 1191 1191 1496; Mul 1496 231 1512; Mul 1257 340 1242; Sub 1496 1496 1257;
  Mul 1257 525 1645; Mul 1280 225 1208; Add 1257 1257 1280; Mul 1280 242 1173; Mul 1091 227 1448;
  Sub 1280 1280 1091; Sub 1257 1257 1280; Add 1257 1141 1257; Mul 1257 212 1257; Mul 1280 242 1257;
  Mul 1091 616 1448; Sub 1280 1280 1091; Sub 1496 1496 1280; Add 1191 1191 1496; Mul 1191 213 1191;
  Add 1438 1438 1191; Mul 1496 570 1460; Mul 1280 258 1386; Add 1091 1496 1280; Mul 1162 572 1142;
  Add 1274 1274 1410; Mul 1274 269 1274; Sub 1274 1274 1310; Mul 1410 279 1274; Add 1200 1162 1410;
  Sub 1091 1091 1200; Mul 1200 297 1392; Mul 1601 275 1554; Add 1558 1200 1601; Mul 1151 282 1051;
  Mul 1119 292 1365; Add 1565 1151 1119; Add 1558 1558 1565; Mul 1565 574 1419; Mul 1252 276 1422;
  Add 1332 1565 1252; Mul 1620 279 1620; Mul 1234 565 1142; Add 1277 1620 1234; Sub 1332 1332 1277;
  Add 1558 1558 1332; Sub 1091 1091 1558; Mul 1558 255 1320; Mul 1332 569 1546; Add 1558 1558 1332;
  Mul 1332 278 1572; Mul 1277 564 1052; Add 1332 1332 1277; Add 1558 1558 1332].
Definition casadi_f0_158 : list instruction := [
  Mul 1332 296 1425; Mul 1277 266 1309; Add 1332 1332 1277; Add 1558 1558 1332; Mul 1332 617 1392;
  Mul 1277 296 1660; Mul 1552 271 1309; Add 1277 1277 1552; Mul 1552 278 1392; Mul 1104 275 1052;
  Add 1552 1552 1104; Sub 1277 1277 1552; Sub 1277 1084 1277; Mul 1277 269 1277; Mul 1552 275 1277;
  Add 1332 1332 1552; Mul 1552 471 1365; Mul 1104 282 1610; Add 1552 1552 1104; Sub 1332 1332 1552;
  Add 1558 1558 1332; Mul 1558 213 1558; Add 1091 1091 1558; Mul 1332 584 1661; Mul 1552 312 1156;
  Add 1104 1332 1552; Mul 1236 586 1347; Add 1402 1402 1166; Mul 1402 323 1402; Sub 1402 1402 1573;
  Mul 1166 333 1402; Add 1545 1236 1166; Sub 1104 1104 1545; Mul 1545 351 1210; Mul 1527 329 1520;
  Add 1167 1545 1527; Mul 1135 336 1144; Mul 1326 346 1032; Add 1088 1135 1326; Add 1167 1167 1088;
  Mul 1088 588 1556; Mul 1329 330 1271; Add 1233 1088 1329; Mul 1373 333 1373; Mul 1251 579 1347;
  Add 1662 1373 1251; Sub 1233 1233 1662; Add 1167 1167 1233; Sub 1104 1104 1167; Mul 1167 309 1225;
  Mul 1233 583 1665; Add 1167 1167 1233; Mul 1233 332 1355; Mul 1662 578 1677; Add 1233 1233 1662;
  Add 1167 1167 1233; Mul 1233 349 1318; Mul 1662 320 1671; Add 1233 1233 1662; Add 1167 1167 1233;
  Mul 1233 619 1210; Mul 1662 349 1538; Mul 1658 325 1671; Add 1662 1662 1658; Mul 1658 332 1210;
  Mul 1659 329 1677; Add 1658 1658 1659; Sub 1662 1662 1658; Sub 1662 1599 1662; Mul 1662 323 1662;
  Mul 1658 329 1662; Add 1233 1233 1658; Mul 1658 473 1032; Mul 1659 336 1243; Add 1658 1658 1659;
  Sub 1233 1233 1658; Add 1167 1167 1233; Mul 1167 213 1167; Add 1104 1104 1167; Mul 1233 597 1022;
  Mul 1658 366 1103; Add 1659 1233 1658; Mul 1656 599 1169; Add 1523 1523 1562; Mul 1523 378 1523;
  Sub 1523 1523 1583; Mul 1562 388 1523; Add 1026 1656 1562; Sub 1659 1659 1026; Mul 1026 406 1371;
  Mul 1653 384 1474; Add 1651 1026 1653; Mul 1643 391 1345; Mul 1647 401 1222; Add 1025 1643 1647;
  Add 1651 1651 1025; Mul 1025 601 1314; Mul 1631 385 1529; Add 1255 1025 1631; Mul 1526 388 1526;
  Mul 1590 592 1169; Add 1108 1526 1590; Sub 1255 1255 1108; Add 1651 1651 1255; Sub 1659 1659 1651;
  Mul 1651 363 1340; Mul 1255 596 1389; Add 1651 1651 1255; Mul 1255 387 1268; Mul 1108 591 1341;
  Add 1255 1255 1108; Add 1651 1651 1255; Mul 1255 405 1096; Mul 1108 374 1317; Add 1255 1255 1108;
  Add 1651 1651 1255; Mul 1255 621 1371; Mul 1108 405 1338; Mul 1461 381 1317; Add 1108 1108 1461;
  Mul 1461 387 1371; Mul 1121 384 1341; Add 1461 1461 1121; Sub 1108 1108 1461; Sub 1108 1663 1108;
  Mul 1108 378 1108; Mul 1461 384 1108; Add 1255 1255 1461; Mul 1461 475 1222; Mul 1121 391 1409;
  Add 1461 1461 1121; Sub 1255 1255 1461; Add 1651 1651 1255; Mul 1651 213 1651; Add 1659 1659 1651;
  Mul 1255 610 1370; Mul 1461 420 1513; Add 1121 1255 1461; Mul 1106 612 1311; Add 1279 1279 1426;
  Mul 1279 430 1279; Sub 1279 1279 1497; Mul 1426 442 1279; Add 1585 1106 1426; Sub 1121 1121 1585;
  Mul 1585 460 1411; Mul 1267 438 1668; Add 1540 1585 1267; Mul 1399 445 1579].
Definition casadi_f0_159 : list instruction := [
  Mul 1634 455 1375; Add 1574 1399 1634; Add 1540 1540 1574; Mul 1574 614 1431; Mul 1172 439 1353;
  Add 1423 1574 1172; Mul 1105 442 1105; Mul 1352 605 1311; Add 1377 1105 1352; Sub 1423 1423 1377;
  Add 1540 1540 1423; Sub 1121 1121 1540; Mul 1540 417 1378; Mul 1423 609 1223; Add 1540 1540 1423;
  Mul 1423 441 1481; Mul 1377 604 1282; Add 1423 1423 1377; Add 1540 1540 1423; Mul 1423 459 1484;
  Mul 1377 426 1400; Add 1423 1423 1377; Add 1540 1540 1423; Mul 1423 623 1411; Mul 1377 459 1171;
  Mul 1628 434 1400; Add 1377 1377 1628; Mul 1628 441 1411; Mul 1533 438 1282; Add 1628 1628 1533;
  Sub 1377 1377 1628; Sub 1377 1376 1377; Mul 1377 430 1377; Mul 1628 438 1377; Add 1423 1423 1628;
  Mul 1628 477 1375; Mul 1533 445 1515; Add 1628 1628 1533; Sub 1423 1423 1628; Add 1540 1540 1423;
  Mul 1540 213 1540; Add 1121 1121 1540; Add 1659 1659 1121; Add 1104 1104 1659; Add 1091 1091 1104;
  Add 1438 1438 1091; Mul 1438 215 1438; Mul 1423 613 1675; Add 1438 1438 1423; Sub 1681 1681 1438;
  Mul 1438 212 1175; Mul 1423 242 1438; Mul 1628 624 1448; Sub 1423 1423 1628; Mul 1628 212 1276;
  Mul 1533 231 1628; Mul 1206 626 1242; Sub 1533 1533 1206; Add 1533 1143 1533; Sub 1423 1423 1533;
  Mul 1533 213 1416; Add 1206 1423 1533; Mul 1456 269 1460; Mul 1464 275 1456; Mul 1384 629 1392;
  Add 1374 1464 1384; Mul 1609 631 1365; Mul 1589 269 1422; Mul 1380 282 1589; Add 1465 1609 1380;
  Add 1465 1196 1465; Sub 1374 1374 1465; Mul 1465 213 1542; Add 1145 1374 1465; Mul 1475 323 1661;
  Mul 1471 329 1475; Mul 1477 634 1210; Add 1479 1471 1477; Mul 1480 636 1032; Mul 1463 323 1271;
  Mul 1458 336 1463; Add 1358 1480 1458; Add 1358 1216 1358; Sub 1479 1479 1358; Mul 1358 213 1587;
  Add 1312 1479 1358; Mul 1492 378 1022; Mul 1476 384 1492; Mul 1207 639 1371; Add 1486 1476 1207;
  Mul 1406 641 1222; Mul 1487 378 1529; Mul 1493 391 1487; Add 1490 1406 1493; Add 1490 1307 1490;
  Sub 1486 1486 1490; Mul 1490 213 1597; Add 1221 1486 1490; Mul 1382 430 1370; Mul 1478 438 1382;
  Mul 1111 644 1411; Add 1506 1478 1111; Mul 1261 646 1375; Mul 1391 430 1353; Mul 1494 445 1391;
  Add 1504 1261 1494; Add 1504 1672 1504; Sub 1506 1506 1504; Mul 1504 213 1182; Add 1501 1506 1504;
  Add 1221 1221 1501; Add 1312 1312 1221; Add 1145 1145 1312; Add 1206 1206 1145; Mul 1206 540 1206;
  Mul 1503 628 1133; Sub 1206 1206 1503; Mul 1503 212 1679; Mul 1500 242 1503; Mul 1505 650 1448;
  Sub 1500 1500 1505; Mul 1505 626 1645; Mul 1491 225 1628; Add 1505 1505 1491; Add 1505 1442 1505;
  Sub 1500 1500 1505; Mul 1505 213 1257; Add 1491 1500 1505; Mul 1489 631 1660; Mul 1194 271 1589;
  Add 1550 1489 1194; Sub 1550 1554 1550; Mul 1434 269 1142; Mul 1165 275 1434; Mul 1288 655 1392;
  Add 1296 1165 1288; Add 1550 1550 1296; Mul 1296 213 1277; Sub 1285 1550 1296; Mul 1511 636 1538;
  Mul 1507 325 1463; Add 1551 1511 1507; Sub 1551 1520 1551; Mul 1502 323 1347; Mul 1445 329 1502;
  Mul 1324 659 1210; Add 1305 1445 1324; Add 1551 1551 1305; Mul 1305 213 1662].
Definition casadi_f0_160 : list instruction := [
  Sub 1301 1551 1305; Mul 1510 641 1338; Mul 1100 381 1487; Add 1193 1510 1100; Sub 1193 1474 1193;
  Mul 1195 378 1169; Mul 1316 384 1195; Mul 1107 663 1371; Add 1292 1316 1107; Add 1193 1193 1292;
  Mul 1292 213 1108; Sub 1606 1193 1292; Mul 1547 646 1171; Mul 1418 434 1391; Add 1330 1547 1418;
  Sub 1330 1668 1330; Mul 1244 430 1311; Mul 1394 438 1244; Mul 1289 667 1411; Add 1605 1394 1289;
  Add 1330 1330 1605; Mul 1605 213 1377; Sub 1600 1330 1605; Add 1606 1606 1600; Add 1301 1301 1606;
  Add 1285 1285 1301; Add 1491 1491 1285; Mul 1491 544 1491; Mul 1591 653 1694; Add 1491 1491 1591;
  Add 1206 1206 1491; Sub 1681 1681 1206; Add 1535 1535 1681; Mul 1535 1 1535; Mul 1681 509 1181;
  Add 1535 1535 1681; Add 1290 1290 1535; Mul 1535 602 1337; Mul 1681 216 1309; Mul 1206 296 1543;
  Sub 1681 1681 1206; Mul 1206 517 1681; Add 1535 1535 1206; Mul 1206 670 1536; Mul 1491 215 1309;
  Mul 1591 296 1675; Add 1491 1491 1591; Mul 1591 532 1491; Add 1206 1206 1591; Add 1535 1535 1206;
  Mul 1495 671 1495; Mul 1206 216 1546; Mul 1591 255 1543; Sub 1206 1206 1591; Mul 1591 215 1052;
  Mul 1588 278 1675; Add 1591 1591 1588; Add 1206 1206 1591; Mul 1591 492 1206; Add 1495 1495 1591;
  Sub 1535 1535 1495; Mul 1495 675 1518; Mul 1591 215 1641; Mul 1588 290 1675; Add 1591 1591 1588;
  Mul 1588 674 1309; Mul 1114 216 1319; Mul 1348 274 1543; Add 1114 1114 1348; Mul 1348 296 1114;
  Sub 1588 1588 1348; Mul 1348 676 1546; Mul 1188 215 1188; Mul 1201 270 1675; Add 1188 1188 1201;
  Mul 1124 216 1124; Mul 1201 281 1543; Add 1124 1124 1201; Sub 1188 1188 1124; Mul 1124 255 1188;
  Add 1348 1348 1124; Add 1588 1588 1348; Add 1591 1591 1588; Mul 1588 602 1363; Mul 1348 523 1681;
  Add 1588 1588 1348; Mul 1348 671 1518; Mul 1124 502 1206; Add 1348 1348 1124; Add 1588 1588 1348;
  Sub 1588 1591 1588; Mul 1588 672 1588; Mul 1348 502 1588; Add 1495 1495 1348; Mul 1348 679 1549;
  Mul 1641 216 1641; Mul 1124 290 1543; Sub 1641 1641 1124; Mul 1124 676 1052; Mul 1201 278 1188;
  Add 1124 1124 1201; Mul 1201 680 1309; Mul 1250 274 1675; Mul 1319 215 1319; Sub 1250 1250 1319;
  Mul 1319 296 1250; Add 1201 1201 1319; Add 1124 1124 1201; Sub 1641 1641 1124; Mul 1124 671 1549;
  Mul 1201 505 1206; Add 1124 1124 1201; Mul 1201 670 1363; Mul 1319 523 1491; Add 1201 1201 1319;
  Add 1124 1124 1201; Add 1124 1641 1124; Mul 1124 672 1124; Mul 1201 505 1124; Add 1348 1348 1201;
  Sub 1495 1495 1348; Add 1535 1535 1495; Mul 1145 674 1145; Mul 1495 633 1114; Sub 1145 1145 1495;
  Mul 1285 680 1285; Mul 1495 657 1250; Add 1285 1285 1495; Mul 1589 275 1589; Mul 1392 631 1392;
  Add 1495 1589 1392; Mul 1348 629 1365; Mul 1201 282 1456; Add 1319 1348 1201; Mul 1298 655 1660;
  Mul 1110 271 1434; Add 1238 1298 1110; Add 1392 1392 1589; Add 1589 1238 1392; Add 1319 1319 1589;
  Sub 1139 1495 1319; Add 1201 1201 1348; Add 1110 1110 1298; Add 1495 1110 1495; Add 1201 1201 1495;
  Sub 1392 1392 1201; Sub 1139 1139 1392; Mul 1463 329 1463; Mul 1210 636 1210].
Definition casadi_f0_161 : list instruction := [
  Add 1392 1463 1210; Mul 1298 634 1032; Mul 1348 336 1475; Add 1343 1298 1348; Mul 1125 659 1538;
  Mul 1097 325 1502; Add 1325 1125 1097; Add 1210 1210 1463; Add 1463 1325 1210; Add 1343 1343 1463;
  Sub 1120 1392 1343; Add 1348 1348 1298; Add 1097 1097 1125; Add 1392 1097 1392; Add 1348 1348 1392;
  Sub 1210 1210 1348; Sub 1120 1120 1210; Mul 1487 384 1487; Mul 1371 641 1371; Add 1210 1487 1371;
  Mul 1125 639 1222; Mul 1298 391 1492; Add 1383 1125 1298; Mul 1227 663 1338; Mul 1170 381 1195;
  Add 1420 1227 1170; Add 1371 1371 1487; Add 1487 1420 1371; Add 1383 1383 1487; Sub 1470 1210 1383;
  Add 1298 1298 1125; Add 1170 1170 1227; Add 1210 1170 1210; Add 1298 1298 1210; Sub 1371 1371 1298;
  Sub 1470 1470 1371; Mul 1391 438 1391; Mul 1371 646 1411; Add 1227 1391 1371; Mul 1125 644 1375;
  Mul 1248 445 1382; Add 1570 1125 1248; Mul 1396 667 1171; Mul 1092 434 1244; Add 1147 1396 1092;
  Add 1371 1371 1391; Add 1391 1147 1371; Add 1570 1570 1391; Sub 1367 1227 1570; Add 1248 1248 1125;
  Add 1092 1092 1396; Add 1227 1092 1227; Add 1248 1248 1227; Sub 1371 1371 1248; Sub 1367 1367 1371;
  Add 1470 1470 1367; Add 1120 1120 1470; Add 1139 1139 1120; Mul 1139 676 1139; Mul 1371 687 1188;
  Add 1396 1139 1371; Sub 1285 1285 1396; Add 1145 1145 1285; Mul 1091 215 1091; Mul 1285 552 1675;
  Add 1091 1091 1285; Mul 1435 216 1435; Mul 1285 568 1543; Sub 1435 1435 1285; Sub 1091 1091 1435;
  Add 1145 1145 1091; Add 1535 1535 1145; Mul 1535 2 1535; Mul 1145 649 1412; Add 1535 1535 1145;
  Add 1290 1290 1535; Mul 1433 677 1433; Mul 1535 216 1665; Mul 1145 309 1543; Sub 1535 1535 1145;
  Mul 1145 215 1677; Mul 1091 332 1675; Add 1145 1145 1091; Add 1535 1535 1145; Mul 1145 484 1535;
  Add 1433 1433 1145; Mul 1145 706 1408; Mul 1091 216 1671; Mul 1435 349 1543; Sub 1091 1091 1435;
  Mul 1435 513 1091; Add 1145 1145 1435; Mul 1435 712 1313; Mul 1285 215 1671; Mul 1396 349 1675;
  Add 1285 1285 1396; Mul 1396 530 1285; Add 1435 1435 1396; Add 1145 1145 1435; Sub 1433 1433 1145;
  Mul 1145 711 1401; Mul 1435 706 1071; Mul 1396 519 1091; Add 1435 1435 1396; Mul 1396 677 1401;
  Mul 1125 494 1535; Add 1396 1396 1125; Add 1435 1435 1396; Mul 1396 215 1584; Mul 1125 344 1675;
  Add 1396 1396 1125; Mul 1125 714 1671; Mul 1263 216 1237; Mul 1258 328 1543; Sub 1263 1263 1258;
  Mul 1258 349 1263; Add 1125 1125 1258; Mul 1258 716 1665; Mul 1321 216 1321; Mul 1548 335 1543;
  Sub 1321 1321 1548; Mul 1275 215 1275; Mul 1548 324 1675; Add 1275 1275 1548; Add 1321 1321 1275;
  Mul 1275 309 1321; Add 1258 1258 1275; Add 1125 1125 1258; Add 1396 1396 1125; Sub 1435 1435 1396;
  Mul 1435 156 1435; Mul 1125 494 1435; Add 1145 1145 1125; Mul 1125 719 1640; Mul 1258 716 1677;
  Mul 1275 332 1321; Add 1258 1258 1275; Mul 1275 718 1671; Mul 1237 215 1237; Mul 1548 328 1675;
  Add 1237 1237 1548; Mul 1548 349 1237; Add 1275 1275 1548; Add 1258 1258 1275; Mul 1584 216 1584;
  Mul 1275 344 1543; Sub 1584 1584 1275; Sub 1258 1258 1584; Mul 1584 677 1640].
Definition casadi_f0_162 : list instruction := [
  Mul 1275 497 1535; Add 1584 1584 1275; Mul 1275 712 1071; Mul 1548 519 1285; Add 1275 1275 1548;
  Add 1584 1584 1275; Sub 1584 1258 1584; Mul 1584 156 1584; Mul 1275 497 1584; Add 1125 1125 1275;
  Sub 1145 1145 1125; Add 1433 1433 1145; Mul 1120 716 1120; Mul 1145 694 1321; Add 1125 1120 1145;
  Mul 1301 718 1301; Mul 1275 661 1237; Add 1301 1301 1275; Sub 1125 1125 1301; Mul 1312 714 1312;
  Mul 1301 638 1263; Add 1312 1312 1301; Sub 1125 1125 1312; Mul 1566 216 1566; Mul 1312 582 1543;
  Sub 1566 1566 1312; Mul 1104 215 1104; Mul 1312 618 1675; Add 1104 1104 1312; Sub 1566 1566 1104;
  Add 1125 1125 1566; Add 1433 1433 1125; Mul 1433 3 1433; Mul 1125 681 1036; Add 1433 1433 1125;
  Add 1290 1290 1433; Mul 1433 715 1387; Mul 1125 327 1317; Mul 1566 405 1315; Add 1125 1125 1566;
  Mul 1566 318 1341; Mul 1104 387 1469; Add 1566 1566 1104; Sub 1125 1125 1566; Mul 1566 510 1125;
  Add 1433 1433 1566; Mul 1566 721 1368; Mul 1104 318 1389; Mul 1312 363 1469; Add 1104 1104 1312;
  Mul 1312 310 1317; Mul 1301 405 1161; Add 1312 1312 1301; Sub 1104 1104 1312; Mul 1312 528 1104;
  Add 1566 1566 1312; Add 1433 1433 1566; Mul 1566 722 1192; Mul 1312 310 1341; Mul 1301 387 1161;
  Add 1312 1312 1301; Mul 1301 327 1389; Mul 1275 363 1315; Add 1301 1301 1275; Sub 1312 1312 1301;
  Mul 1301 479 1312; Add 1566 1566 1301; Add 1433 1433 1566; Mul 1566 726 1245; Mul 1301 318 1663;
  Mul 1275 404 1469; Add 1301 1301 1275; Mul 1275 310 1350; Mul 1548 399 1161; Add 1275 1275 1548;
  Sub 1301 1301 1275; Mul 1275 725 1317; Mul 1548 327 1455; Mul 1179 383 1315; Add 1548 1548 1179;
  Mul 1179 318 1449; Mul 1254 379 1469; Add 1179 1179 1254; Sub 1548 1548 1179; Mul 1179 405 1548;
  Add 1275 1275 1179; Mul 1179 727 1389; Mul 1449 310 1449; Mul 1254 379 1161; Add 1449 1449 1254;
  Mul 1254 327 1635; Mul 1430 390 1315; Add 1254 1254 1430; Sub 1449 1449 1254; Mul 1254 363 1449;
  Add 1179 1179 1254; Sub 1275 1275 1179; Add 1301 1301 1275; Mul 1275 715 1444; Mul 1179 515 1125;
  Add 1275 1275 1179; Mul 1179 722 1245; Mul 1254 486 1312; Add 1179 1179 1254; Sub 1275 1275 1179;
  Sub 1275 1301 1275; Mul 1275 723 1275; Mul 1179 486 1275; Add 1566 1566 1179; Mul 1179 730 1287;
  Mul 1350 327 1350; Mul 1254 399 1315; Add 1350 1350 1254; Mul 1254 318 1514; Mul 1430 408 1469;
  Add 1254 1254 1430; Sub 1350 1350 1254; Mul 1254 727 1341; Mul 1430 387 1449; Add 1254 1254 1430;
  Mul 1430 731 1317; Mul 1635 318 1635; Mul 1241 390 1469; Add 1635 1635 1241; Mul 1455 310 1455;
  Mul 1241 383 1161; Add 1455 1455 1241; Sub 1635 1635 1455; Mul 1455 405 1635; Add 1430 1430 1455;
  Sub 1254 1254 1430; Add 1350 1350 1254; Mul 1254 722 1287; Mul 1430 489 1312; Add 1254 1254 1430;
  Mul 1430 721 1444; Mul 1455 515 1104; Add 1430 1430 1455; Sub 1254 1254 1430; Sub 1254 1350 1254;
  Mul 1254 723 1254; Mul 1430 489 1254; Add 1179 1179 1430; Sub 1566 1566 1179; Add 1433 1433 1566;
  Mul 1566 725 1221; Mul 1179 643 1548; Add 1566 1566 1179; Mul 1179 731 1606].
Definition casadi_f0_163 : list instruction := [
  Mul 1430 665 1635; Add 1179 1179 1430; Mul 1430 727 1470; Mul 1455 701 1449; Add 1241 1430 1455;
  Add 1179 1179 1241; Add 1566 1566 1179; Mul 1179 310 1659; Mul 1241 620 1161; Add 1179 1179 1241;
  Mul 1241 327 1603; Mul 1272 595 1315; Add 1241 1241 1272; Mul 1359 318 1359; Mul 1272 395 1469;
  Add 1231 1359 1272; Add 1241 1241 1231; Add 1179 1179 1241; Sub 1566 1566 1179; Add 1433 1433 1566;
  Mul 1566 4 1433; Mul 1179 720 1098; Add 1566 1566 1179; Add 1290 1290 1566; Mul 1566 728 1403;
  Mul 1179 372 1400; Mul 1241 459 1159; Add 1179 1179 1241; Mul 1241 369 1282; Mul 1231 441 1372;
  Add 1241 1241 1231; Sub 1179 1179 1241; Mul 1241 443 1179; Add 1566 1566 1241; Mul 1241 733 1484;
  Mul 1231 369 1223; Mul 1177 417 1372; Add 1231 1231 1177; Mul 1177 358 1400; Mul 1415 459 1657;
  Add 1177 1177 1415; Sub 1231 1231 1177; Mul 1177 426 1231; Add 1241 1241 1177; Add 1566 1566 1241;
  Mul 1241 734 1115; Mul 1177 358 1282; Mul 1415 441 1657; Add 1177 1177 1415; Mul 1415 372 1223;
  Mul 1204 417 1159; Add 1415 1415 1204; Sub 1177 1177 1415; Mul 1415 478 1177; Add 1241 1241 1415;
  Add 1566 1566 1241; Mul 1241 735 1375; Mul 1415 369 1376; Mul 1204 458 1372; Add 1415 1415 1204;
  Mul 1204 358 1134; Mul 1217 451 1657; Add 1204 1204 1217; Sub 1415 1415 1204; Mul 1204 736 1400;
  Mul 1217 372 1439; Mul 1557 437 1159; Add 1217 1217 1557; Mul 1557 369 1440; Mul 1498 432 1372;
  Add 1557 1557 1498; Sub 1217 1217 1557; Mul 1557 459 1217; Add 1204 1204 1557; Mul 1557 738 1223;
  Mul 1440 358 1440; Mul 1498 432 1657; Add 1440 1440 1498; Mul 1498 372 1360; Mul 1152 444 1159;
  Add 1498 1498 1152; Sub 1440 1440 1498; Mul 1498 417 1440; Add 1557 1557 1498; Sub 1204 1204 1557;
  Add 1415 1415 1204; Mul 1204 728 1411; Mul 1557 438 1179; Add 1204 1204 1557; Mul 1557 734 1375;
  Mul 1498 445 1177; Add 1557 1557 1498; Sub 1204 1204 1557; Sub 1415 1415 1204; Mul 1415 430 1415;
  Mul 1204 445 1415; Add 1241 1241 1204; Mul 1204 739 1171; Mul 1134 372 1134; Mul 1557 451 1159;
  Add 1134 1134 1557; Mul 1557 369 1531; Mul 1498 462 1372; Add 1557 1557 1498; Sub 1134 1134 1557;
  Mul 1557 738 1282; Mul 1498 441 1440; Add 1557 1557 1498; Mul 1498 741 1400; Mul 1360 369 1360;
  Mul 1152 444 1372; Add 1360 1360 1152; Mul 1439 358 1439; Mul 1152 437 1657; Add 1439 1439 1152;
  Sub 1360 1360 1439; Mul 1439 459 1360; Add 1498 1498 1439; Sub 1557 1557 1498; Add 1134 1134 1557;
  Mul 1557 734 1171; Mul 1498 434 1177; Add 1557 1557 1498; Mul 1498 733 1411; Mul 1439 438 1231;
  Add 1498 1498 1439; Sub 1557 1557 1498; Sub 1134 1134 1557; Mul 1134 430 1134; Mul 1557 434 1134;
  Add 1204 1204 1557; Sub 1241 1241 1204; Add 1566 1566 1241; Mul 1241 736 1501; Mul 1204 648 1217;
  Add 1241 1241 1204; Mul 1204 741 1600; Mul 1557 669 1360; Add 1204 1204 1557; Mul 1557 738 1367;
  Mul 1498 708 1440; Add 1439 1557 1498; Add 1204 1204 1439; Add 1241 1241 1204; Mul 1204 358 1121;
  Mul 1439 622 1657; Add 1204 1204 1439; Mul 1439 372 1128; Mul 1152 608 1159].
Definition casadi_f0_164 : list instruction := [
  Add 1439 1439 1152; Mul 1541 369 1541; Mul 1152 449 1372; Add 1226 1541 1152; Add 1439 1439 1226;
  Add 1204 1204 1439; Sub 1241 1241 1204; Add 1566 1566 1241; Mul 1241 5 1566; Mul 1204 732 1611;
  Add 1241 1241 1204; Add 1290 1290 1241; Mul 1241 286 1451; Mul 1204 212 1241; Mul 1204 107 1204;
  Mul 1439 745 1038; Mul 1226 737 1038; Mul 1149 9 1241; Add 1226 1226 1149; Mul 1149 743 1034;
  Mul 1118 286 1074; Mul 1158 8 1118; Add 1149 1149 1158; Sub 1226 1226 1149; Mul 1149 269 1226;
  Mul 1158 81 1149; Mul 1099 746 1075; Mul 1683 743 1038; Mul 1281 9 1118; Sub 1683 1683 1281; Mul 1241 8 1241;
  Mul 1281 737 1034; Sub 1241 1241 1281; Sub 1683 1683 1241; Mul 1241 53 1683; Add 1099 1099 1241;
  Mul 1241 66 1226; Mul 1281 742 1055; Sub 1241 1241 1281; Add 1099 1099 1241; Mul 1241 323 1099;
  Mul 1281 47 1241; Mul 1062 378 1099; Mul 1693 24 1062; Mul 1247 752 1453; Mul 1689 66 1683; Mul 1567 746 1055;
  Sub 1689 1689 1567; Mul 1567 742 1075; Mul 1226 53 1226; Add 1567 1567 1226; Sub 1689 1689 1567;
  Mul 1567 35 1689; Add 1247 1247 1567; Mul 1567 378 1247; Mul 1226 31 1567; Sub 1693 1693 1226;
  Mul 1226 753 1047; Mul 1680 15 1247; Add 1226 1226 1680; Mul 1680 16 1099; Mul 1695 747 1079;
  Sub 1680 1680 1695; Add 1226 1226 1680; Mul 1226 430 1226; Mul 1680 26 1226; Mul 1247 16 1247;
  Mul 1695 753 1079; Sub 1247 1247 1695; Mul 1695 747 1047; Mul 1099 15 1099; Add 1695 1695 1099;
  Sub 1247 1247 1695; Mul 1247 430 1247; Mul 1695 28 1247; Sub 1680 1680 1695; Mul 1695 16 1226;
  Mul 1099 755 1079; Sub 1695 1695 1099; Mul 1099 757 1047; Mul 1696 15 1247; Add 1099 1099 1696;
  Sub 1695 1695 1099; Mul 1099 25 1695; Mul 1696 16 1247; Mul 1684 757 1079; Sub 1696 1696 1684;
  Mul 1684 755 1047; Mul 1060 15 1226; Add 1684 1684 1060; Add 1696 1696 1684; Mul 1684 32 1696;
  Sub 1099 1099 1684; Add 1099 1680 1099; Add 1693 1693 1099; Mul 1099 19 1693; Mul 1684 751 1053;
  Sub 1099 1099 1684; Mul 1684 763 1453; Mul 1060 19 1689; Mul 1613 752 1053; Sub 1060 1060 1613;
  Mul 1613 378 1060; Mul 1699 31 1613; Mul 1016 380 1062; Sub 1699 1699 1016; Mul 1060 430 1060;
  Mul 1016 28 1060; Mul 1226 433 1226; Sub 1016 1016 1226; Mul 1226 16 1016; Mul 1697 764 1079;
  Sub 1226 1226 1697; Mul 1697 766 1047; Mul 1247 433 1247; Mul 1700 26 1060; Sub 1247 1247 1700;
  Mul 1700 15 1247; Add 1697 1697 1700; Add 1226 1226 1697; Mul 1697 32 1060; Mul 1700 198 1695;
  Sub 1697 1697 1700; Add 1226 1226 1697; Add 1699 1699 1226; Mul 1226 35 1699; Add 1684 1684 1226;
  Add 1099 1099 1684; Add 1062 1062 1695; Mul 1695 48 1062; Add 1684 1567 1696; Mul 1226 19 1684;
  Mul 1697 765 1053; Sub 1226 1226 1697; Mul 1697 768 1453; Add 1700 1613 1060; Mul 1702 35 1700;
  Add 1697 1697 1702; Sub 1226 1226 1697; Mul 1697 55 1226; Sub 1695 1695 1697; Add 1099 1099 1695;
  Add 1281 1281 1099; Mul 1099 66 1281; Mul 1695 749 1055; Sub 1099 1099 1695; Mul 1695 762 1075;
  Mul 1567 380 1567; Mul 1613 24 1613].
Definition casadi_f0_165 : list instruction := [
  Sub 1567 1567 1613; Mul 1247 16 1247; Mul 1079 766 1079; Sub 1247 1247 1079; Mul 1047 764 1047;
  Mul 1016 15 1016; Add 1047 1047 1016; Sub 1247 1247 1047; Mul 1696 198 1696; Mul 1060 25 1060;
  Sub 1696 1696 1060; Add 1247 1247 1696; Add 1567 1567 1247; Mul 1247 62 1226; Mul 1700 19 1700;
  Mul 1696 768 1053; Sub 1700 1700 1696; Mul 1696 765 1453; Mul 1684 35 1684; Add 1696 1696 1684;
  Add 1700 1700 1696; Mul 1696 48 1700; Sub 1247 1247 1696; Add 1247 1567 1247; Mul 1689 323 1689;
  Mul 1696 47 1689; Sub 1247 1247 1696; Mul 1696 53 1247; Add 1695 1695 1696; Add 1099 1099 1695;
  Mul 1695 86 1226; Sub 1099 1099 1695; Add 1158 1158 1099; Mul 1099 9 1158; Add 1439 1439 1099;
  Mul 1247 66 1247; Mul 1099 762 1055; Sub 1247 1247 1099; Mul 1099 749 1075; Mul 1281 53 1281;
  Add 1099 1099 1281; Sub 1247 1247 1099; Mul 1099 91 1226; Add 1247 1247 1099; Mul 1683 269 1683;
  Mul 1099 81 1683; Sub 1247 1247 1099; Mul 1099 8 1247; Mul 1281 758 1034; Sub 1099 1099 1281;
  Add 1439 1439 1099; Mul 1226 102 1226; Add 1099 1689 1700; Mul 1281 66 1099; Mul 1695 770 1055;
  Sub 1281 1281 1695; Mul 1695 772 1075; Add 1696 1241 1062; Mul 1684 53 1696; Add 1695 1695 1684;
  Add 1281 1281 1695; Add 1695 1683 1281; Mul 1684 8 1695; Mul 1060 773 1034; Sub 1684 1684 1060;
  Mul 1060 776 1038; Mul 1696 66 1696; Mul 1055 772 1055; Sub 1696 1696 1055; Mul 1075 770 1075;
  Mul 1099 53 1099; Add 1075 1075 1099; Sub 1696 1696 1075; Add 1075 1149 1696; Mul 1099 9 1075;
  Add 1060 1060 1099; Sub 1684 1684 1060; Mul 1684 108 1684; Sub 1226 1226 1684; Add 1439 1439 1226;
  Add 1204 1204 1439; Mul 1204 114 1204; Mul 1074 740 1074; Sub 1204 1204 1074; Mul 1451 774 1451;
  Mul 1158 8 1158; Mul 1074 745 1034; Sub 1158 1158 1074; Mul 1074 758 1038; Mul 1247 9 1247;
  Add 1074 1074 1247; Sub 1158 1158 1074; Mul 1038 773 1038; Mul 1695 9 1695; Add 1038 1038 1695;
  Mul 1075 8 1075; Mul 1034 776 1034; Sub 1075 1075 1034; Add 1038 1038 1075; Mul 1075 108 1038;
  Add 1158 1158 1075; Mul 1118 212 1118; Mul 1075 107 1118; Sub 1158 1158 1075; Mul 1158 113 1158;
  Add 1451 1451 1158; Sub 1204 1204 1451; Add 1290 1290 1204; Mul 1204 210 1290; Sub 1349 1349 1204;
  Div 1204 1240 92; Mul 1451 1069 1086; Sub 1204 1204 1451; Mul 1451 779 1204; Add 1157 1157 1407;
  Add 1302 1302 1462; Sub 1157 1157 1302; Add 1291 1291 1129; Add 1688 1688 1429; Sub 1291 1291 1688;
  Add 1354 1354 1291; Sub 1157 1157 1354; Add 1157 1157 1578; Add 1447 1447 1413; Add 1424 1424 1466;
  Sub 1447 1447 1424; Add 1019 1019 1452; Add 1205 1205 1219; Add 1019 1019 1205; Add 1664 1664 1269;
  Add 1564 1564 1137; Sub 1664 1664 1564; Add 1019 1019 1664; Sub 1447 1447 1019; Add 1447 1447 1576;
  Add 1174 1174 1109; Add 1361 1361 1571; Sub 1174 1174 1361; Add 1327 1327 1577; Add 1604 1604 1598;
  Add 1327 1327 1604; Add 1559 1559 1524; Add 1253 1253 1580; Sub 1559 1559 1253; Add 1327 1327 1559;
  Sub 1174 1174 1327; Add 1174 1174 1517; Add 1146 1146 1525; Add 1575 1575 1595].
Definition casadi_f0_166 : list instruction := [
  Sub 1146 1146 1575; Add 1473 1473 1633; Add 1297 1297 1333; Add 1473 1473 1297; Add 1356 1356 1140;
  Add 1303 1303 1259; Sub 1356 1356 1303; Add 1473 1473 1356; Sub 1146 1146 1473; Add 1146 1146 1581;
  Add 1131 1131 1432; Add 1561 1561 1485; Sub 1131 1131 1561; Add 1185 1185 1616; Add 1398 1398 1093;
  Add 1185 1185 1398; Add 1351 1351 1094; Add 1117 1117 1122; Sub 1351 1351 1117; Add 1185 1185 1351;
  Sub 1131 1131 1185; Add 1131 1131 1617; Add 1146 1146 1131; Add 1174 1174 1146; Add 1447 1447 1174;
  Add 1157 1157 1447; Mul 1157 216 1157; Mul 1617 780 1543; Sub 1157 1157 1617; Mul 1617 781 1675;
  Add 1687 1687 1483; Add 1283 1283 1123; Sub 1687 1687 1283; Sub 1539 1539 1687; Add 1608 1608 1701;
  Add 1235 1235 1202; Sub 1608 1608 1235; Add 1539 1539 1608; Sub 1539 1539 1191; Add 1234 1234 1620;
  Add 1252 1252 1565; Sub 1234 1234 1252; Add 1119 1119 1151; Add 1601 1601 1200; Add 1119 1119 1601;
  Add 1410 1410 1162; Add 1280 1280 1496; Sub 1410 1410 1280; Add 1119 1119 1410; Sub 1234 1234 1119;
  Sub 1234 1234 1558; Add 1251 1251 1373; Add 1329 1329 1088; Sub 1251 1251 1329; Add 1326 1326 1135;
  Add 1527 1527 1545; Add 1326 1326 1527; Add 1166 1166 1236; Add 1552 1552 1332; Sub 1166 1166 1552;
  Add 1326 1326 1166; Sub 1251 1251 1326; Sub 1251 1251 1167; Add 1590 1590 1526; Add 1631 1631 1025;
  Sub 1590 1590 1631; Add 1647 1647 1643; Add 1653 1653 1026; Add 1647 1647 1653; Add 1562 1562 1656;
  Add 1658 1658 1233; Sub 1562 1562 1658; Add 1647 1647 1562; Sub 1590 1590 1647; Sub 1590 1590 1651;
  Add 1352 1352 1105; Add 1172 1172 1574; Sub 1352 1352 1172; Add 1634 1634 1399; Add 1267 1267 1585;
  Add 1634 1634 1267; Add 1426 1426 1106; Add 1461 1461 1255; Sub 1426 1426 1461; Add 1634 1634 1426;
  Sub 1352 1352 1634; Sub 1352 1352 1540; Add 1590 1590 1352; Add 1251 1251 1590; Add 1234 1234 1251;
  Add 1539 1539 1234; Mul 1539 215 1539; Add 1617 1617 1539; Sub 1157 1157 1617; Sub 1423 1423 1533;
  Sub 1374 1374 1465; Sub 1479 1479 1358; Sub 1486 1486 1490; Sub 1506 1506 1504; Add 1486 1486 1506;
  Add 1479 1479 1486; Add 1374 1374 1479; Add 1423 1423 1374; Mul 1423 540 1423; Mul 1533 625 1133;
  Sub 1423 1423 1533; Mul 1533 651 1694; Sub 1500 1500 1505; Add 1550 1550 1296; Add 1551 1551 1305;
  Add 1193 1193 1292; Add 1330 1330 1605; Add 1193 1193 1330; Add 1551 1551 1193; Add 1550 1550 1551;
  Add 1500 1500 1550; Mul 1500 544 1500; Add 1533 1533 1500; Add 1423 1423 1533; Sub 1157 1157 1423;
  Mul 1157 0 1157; Mul 1423 23 1081; Add 1157 1157 1423; Mul 1644 508 1644; Mul 1423 534 1393;
  Add 1644 1644 1423; Add 1340 1340 1378; Mul 1295 482 1295; Mul 1113 511 1113; Add 1295 1295 1113;
  Sub 1340 1340 1295; Add 1225 1225 1340; Mul 1322 490 1322; Mul 1278 514 1278; Add 1322 1322 1278;
  Sub 1225 1225 1322; Add 1320 1320 1225; Mul 1180 498 1180; Mul 1582 518 1582; Add 1180 1180 1582;
  Sub 1320 1320 1180; Add 1388 1388 1320; Mul 1537 522 1537; Mul 1127 506 1127; Sub 1537 1537 1127;
  Sub 1388 1388 1537; Mul 1537 526 1388; Mul 1127 784 1164; Add 1537 1537 1127].
Definition casadi_f0_167 : list instruction := [
  Add 1268 1268 1481; Mul 1230 1304 1230; Add 1087 1087 1230; Mul 1087 20 1087; Add 1268 1268 1087;
  Add 1355 1355 1268; Mul 1624 1153 1624; Add 1436 1436 1624; Mul 1436 37 1436; Add 1355 1355 1436;
  Add 1572 1572 1355; Mul 1323 1212 1323; Add 1519 1519 1323; Mul 1519 80 1519; Add 1572 1572 1519;
  Add 1673 1673 1572; Mul 1183 1293 1183; Add 1239 1239 1183; Mul 1239 100 1239; Sub 1673 1673 1239;
  Mul 1673 536 1673; Mul 1239 496 1215; Add 1673 1673 1239; Add 1537 1537 1673; Sub 1644 1644 1537;
  Mul 1537 546 1102; Mul 1673 538 1698; Add 1537 1537 1673; Mul 1673 791 1364; Mul 1667 215 1667;
  Mul 1239 222 1675; Add 1667 1667 1239; Mul 1141 216 1141; Mul 1239 229 1543; Sub 1141 1141 1239;
  Sub 1667 1667 1141; Mul 1141 540 1173; Mul 1239 227 1133; Sub 1141 1141 1239; Mul 1239 544 1532;
  Mul 1519 219 1694; Add 1239 1239 1519; Sub 1141 1141 1239; Add 1667 1667 1141; Mul 1141 526 1246;
  Mul 1239 543 1164; Add 1141 1141 1239; Mul 1364 536 1364; Mul 1239 537 1215; Add 1364 1364 1239;
  Sub 1141 1141 1364; Sub 1141 1667 1141; Mul 1141 141 1141; Mul 1364 537 1141; Add 1673 1673 1364;
  Sub 1537 1537 1673; Add 1644 1644 1537; Mul 1537 556 1276; Mul 1674 560 1674; Add 1673 1537 1674;
  Sub 1592 1673 1592; Sub 1421 1622 1421; Sub 1229 1030 1229; Add 1421 1421 1229; Add 1674 1674 1537;
  Sub 1369 1369 1674; Add 1421 1421 1369; Sub 1592 1592 1421; Mul 1421 570 1422; Mul 1386 574 1386;
  Add 1369 1421 1386; Sub 1642 1369 1642; Sub 1636 1636 1344; Sub 1648 1648 1116; Add 1636 1636 1648;
  Add 1386 1386 1421; Sub 1441 1441 1386; Add 1636 1636 1441; Sub 1642 1642 1636; Mul 1636 584 1271;
  Mul 1156 588 1156; Add 1441 1636 1156; Sub 1678 1441 1678; Sub 1130 1130 1346; Sub 1682 1682 1218;
  Add 1130 1130 1682; Add 1156 1156 1636; Sub 1593 1593 1156; Add 1130 1130 1593; Sub 1678 1678 1130;
  Mul 1130 597 1529; Mul 1103 601 1103; Add 1593 1130 1103; Sub 1655 1593 1655; Sub 1650 1650 1443;
  Sub 1308 1308 1199; Add 1650 1650 1308; Add 1103 1103 1130; Sub 1563 1563 1103; Add 1650 1650 1563;
  Sub 1655 1655 1650; Mul 1650 610 1353; Mul 1513 614 1513; Add 1563 1650 1513; Sub 1362 1563 1362;
  Sub 1586 1586 1284; Sub 1417 1417 1652; Add 1586 1586 1417; Add 1513 1513 1650; Sub 1528 1528 1513;
  Add 1586 1586 1528; Sub 1362 1362 1586; Add 1655 1655 1362; Add 1678 1678 1655; Add 1642 1642 1678;
  Add 1592 1592 1642; Mul 1592 216 1592; Mul 1586 251 1543; Sub 1592 1592 1586; Mul 1586 230 1645;
  Mul 1442 225 1442; Add 1528 1586 1442; Mul 1143 231 1143; Mul 1650 223 1242; Sub 1143 1143 1650;
  Sub 1528 1528 1143; Mul 1670 560 1670; Mul 1650 553 1276; Add 1417 1670 1650; Mul 1187 244 1187;
  Mul 1679 248 1679; Add 1652 1187 1679; Sub 1417 1417 1652; Sub 1528 1528 1417; Mul 1276 558 1276;
  Mul 1176 560 1176; Add 1417 1276 1176; Mul 1175 243 1175; Mul 1666 249 1666; Add 1652 1175 1666;
  Sub 1417 1417 1652; Add 1528 1528 1417; Mul 1132 219 1132; Mul 1532 239 1532; Add 1132 1132 1532;
  Mul 1649 227 1649; Mul 1173 246 1173; Add 1649 1649 1173; Add 1132 1132 1649].
Definition casadi_f0_168 : list instruction := [
  Mul 1208 467 1208; Mul 1618 525 1618; Sub 1208 1208 1618; Add 1132 1132 1208; Mul 1416 231 1416;
  Mul 1208 559 1242; Sub 1416 1416 1208; Mul 1208 616 1645; Mul 1257 225 1257; Add 1208 1208 1257;
  Add 1416 1416 1208; Add 1132 1132 1416; Mul 1132 213 1132; Sub 1528 1528 1132; Mul 1416 572 1422;
  Mul 1274 574 1274; Add 1208 1416 1274; Mul 1460 284 1460; Mul 1467 258 1467; Add 1257 1460 1467;
  Sub 1208 1208 1257; Mul 1257 297 1660; Mul 1618 271 1554; Add 1649 1257 1618; Mul 1173 282 1196;
  Mul 1532 300 1365; Add 1417 1173 1532; Add 1649 1649 1417; Mul 1203 574 1203; Mul 1422 567 1422;
  Add 1417 1203 1422; Mul 1419 279 1419; Mul 1142 276 1142; Add 1652 1419 1142; Sub 1417 1417 1652;
  Add 1649 1649 1417; Sub 1208 1208 1649; Mul 1213 255 1213; Mul 1649 280 1546; Add 1213 1213 1649;
  Mul 1425 278 1425; Mul 1649 266 1052; Add 1425 1425 1649; Add 1213 1213 1425; Mul 1224 296 1224;
  Mul 1309 472 1309; Add 1224 1224 1309; Add 1213 1213 1224; Mul 1224 573 1365; Mul 1542 282 1542;
  Add 1224 1224 1542; Mul 1542 617 1660; Mul 1277 271 1277; Add 1542 1542 1277; Sub 1224 1224 1542;
  Add 1213 1213 1224; Mul 1213 213 1213; Sub 1208 1208 1213; Mul 1224 586 1271; Mul 1402 588 1402;
  Add 1542 1224 1402; Mul 1661 338 1661; Mul 1154 312 1154; Add 1277 1661 1154; Sub 1542 1542 1277;
  Mul 1277 351 1538; Mul 1309 325 1520; Add 1425 1277 1309; Mul 1649 336 1216; Mul 1417 354 1032;
  Add 1652 1649 1417; Add 1425 1425 1652; Mul 1544 588 1544; Mul 1271 581 1271; Add 1652 1544 1271;
  Mul 1556 333 1556; Mul 1347 330 1347; Add 1284 1556 1347; Sub 1652 1652 1284; Add 1425 1425 1652;
  Sub 1542 1542 1425; Mul 1454 309 1454; Mul 1425 334 1665; Add 1454 1454 1425; Mul 1318 332 1318;
  Mul 1425 320 1677; Add 1318 1318 1425; Add 1454 1454 1318; Mul 1607 349 1607; Mul 1671 474 1671;
  Add 1607 1607 1671; Add 1454 1454 1607; Mul 1607 587 1032; Mul 1587 336 1587; Add 1607 1607 1587;
  Mul 1587 619 1538; Mul 1662 325 1662; Add 1587 1587 1662; Sub 1607 1607 1587; Add 1454 1454 1607;
  Mul 1454 213 1454; Sub 1542 1542 1454; Mul 1607 599 1529; Mul 1523 601 1523; Add 1587 1607 1523;
  Mul 1022 393 1022; Mul 1522 366 1522; Add 1662 1022 1522; Sub 1587 1587 1662; Mul 1662 406 1338;
  Mul 1671 381 1474; Add 1318 1662 1671; Mul 1425 391 1307; Mul 1652 409 1222; Add 1284 1425 1652;
  Add 1318 1318 1284; Mul 1168 601 1168; Mul 1529 594 1529; Add 1284 1168 1529; Mul 1314 388 1314;
  Mul 1169 385 1169; Add 1130 1314 1169; Sub 1284 1284 1130; Add 1318 1318 1284; Sub 1587 1587 1318;
  Mul 1190 363 1190; Mul 1318 389 1389; Add 1190 1190 1318; Mul 1096 387 1096; Mul 1318 374 1341;
  Add 1096 1096 1318; Add 1190 1190 1096; Mul 1488 405 1488; Mul 1317 476 1317; Add 1488 1488 1317;
  Add 1190 1190 1488; Mul 1488 600 1222; Mul 1597 391 1597; Add 1488 1488 1597; Mul 1597 621 1338;
  Mul 1108 381 1108; Add 1597 1597 1108; Sub 1488 1488 1597; Add 1190 1190 1488; Mul 1190 213 1190;
  Sub 1587 1587 1190; Mul 1488 612 1353; Mul 1279 614 1279; Add 1597 1488 1279].
Definition casadi_f0_169 : list instruction := [
  Mul 1370 447 1370; Mul 1150 420 1150; Add 1108 1370 1150; Sub 1597 1597 1108; Mul 1108 460 1171;
  Mul 1317 434 1668; Add 1096 1108 1317; Mul 1318 445 1672; Mul 1284 463 1375; Add 1130 1318 1284;
  Add 1096 1096 1130; Mul 1189 614 1189; Mul 1353 607 1353; Add 1130 1189 1353; Mul 1431 442 1431;
  Mul 1311 439 1311; Add 1308 1431 1311; Sub 1130 1130 1308; Add 1096 1096 1130; Sub 1597 1597 1096;
  Mul 1096 417 1403; Mul 1130 443 1223; Add 1096 1096 1130; Mul 1130 441 1484; Mul 1308 426 1282;
  Add 1130 1130 1308; Add 1096 1096 1130; Mul 1130 459 1115; Mul 1400 478 1400; Add 1130 1130 1400;
  Add 1096 1096 1130; Mul 1130 611 1375; Mul 1182 445 1182; Add 1130 1130 1182; Mul 1182 623 1171;
  Mul 1377 434 1377; Add 1182 1182 1377; Sub 1130 1130 1182; Add 1096 1096 1130; Mul 1096 213 1096;
  Sub 1597 1597 1096; Add 1587 1587 1597; Add 1542 1542 1587; Add 1208 1208 1542; Add 1528 1528 1208;
  Mul 1528 215 1528; Mul 1130 470 1675; Add 1528 1528 1130; Sub 1592 1592 1528; Mul 1528 225 1438;
  Mul 1130 624 1645; Add 1182 1528 1130; Mul 1377 231 1503; Mul 1400 650 1242; Sub 1377 1377 1400;
  Sub 1182 1182 1377; Mul 1512 213 1512; Add 1400 1182 1512; Mul 1365 655 1365; Mul 1434 282 1434;
  Add 1308 1365 1434; Sub 1308 1051 1308; Mul 1456 271 1456; Mul 1660 629 1660; Add 1199 1456 1660;
  Add 1308 1308 1199; Mul 1610 213 1610; Sub 1199 1308 1610; Mul 1032 659 1032; Mul 1502 336 1502;
  Add 1443 1032 1502; Sub 1443 1144 1443; Mul 1475 325 1475; Mul 1538 634 1538; Add 1636 1475 1538;
  Add 1443 1443 1636; Mul 1243 213 1243; Sub 1636 1443 1243; Mul 1222 663 1222; Mul 1195 391 1195;
  Add 1682 1222 1195; Sub 1682 1345 1682; Mul 1492 381 1492; Mul 1338 639 1338; Add 1218 1492 1338;
  Add 1682 1682 1218; Mul 1409 213 1409; Sub 1218 1682 1409; Mul 1346 667 1375; Mul 1244 445 1244;
  Add 1421 1346 1244; Sub 1421 1579 1421; Mul 1382 434 1382; Mul 1648 644 1171; Add 1116 1382 1648;
  Add 1421 1421 1116; Mul 1515 213 1515; Sub 1116 1421 1515; Add 1218 1218 1116; Add 1636 1636 1218;
  Add 1199 1199 1636; Add 1400 1400 1199; Mul 1400 540 1400; Mul 1344 250 1133; Sub 1400 1400 1344;
  Mul 1503 225 1503; Mul 1645 650 1645; Add 1344 1503 1645; Mul 1438 231 1438; Mul 1242 624 1242;
  Sub 1438 1438 1242; Add 1645 1645 1503; Mul 1628 242 1628; Mul 1448 626 1448; Sub 1628 1628 1448;
  Add 1448 1645 1628; Add 1503 1438 1448; Sub 1503 1344 1503; Add 1344 1344 1628; Add 1438 1438 1344;
  Sub 1645 1645 1438; Sub 1503 1503 1645; Sub 1110 1110 1319; Sub 1238 1238 1201; Sub 1110 1110 1238;
  Sub 1097 1097 1343; Sub 1325 1325 1348; Sub 1097 1097 1325; Sub 1170 1170 1383; Sub 1420 1420 1298;
  Sub 1170 1170 1420; Sub 1092 1092 1570; Sub 1147 1147 1248; Sub 1092 1092 1147; Add 1170 1170 1092;
  Add 1097 1097 1170; Add 1110 1110 1097; Add 1503 1503 1110; Mul 1147 544 1503; Mul 1248 806 1694;
  Add 1147 1147 1248; Add 1400 1400 1147; Sub 1592 1592 1400; Add 1644 1644 1592; Mul 1644 216 1644;
  Mul 1592 652 1543; Sub 1644 1644 1592; Mul 1592 804 1675; Mul 1450 508 1450].
Definition casadi_f0_170 : list instruction := [
  Mul 1400 521 1393; Add 1450 1450 1400; Add 1625 1625 1230; Mul 1625 20 1625; Add 1583 1583 1497;
  Sub 1625 1625 1583; Sub 1573 1625 1573; Add 1627 1627 1624; Mul 1627 37 1627; Add 1573 1573 1627;
  Sub 1310 1573 1310; Add 1646 1646 1323; Mul 1646 80 1646; Add 1310 1310 1646; Add 1457 1457 1310;
  Sub 1335 1335 1183; Mul 1335 100 1335; Add 1457 1457 1335; Mul 1457 526 1457; Mul 1335 499 1164;
  Add 1457 1457 1335; Mul 1388 536 1388; Mul 1335 784 1215; Add 1388 1388 1335; Add 1457 1457 1388;
  Sub 1450 1450 1457; Mul 1246 791 1246; Mul 1141 543 1141; Add 1246 1246 1141; Mul 1102 539 1102;
  Mul 1141 538 1163; Add 1102 1102 1141; Sub 1246 1246 1102; Add 1450 1450 1246; Add 1442 1442 1586;
  Sub 1442 1442 1143; Add 1666 1666 1175; Add 1176 1176 1276; Sub 1666 1666 1176; Sub 1442 1442 1666;
  Add 1679 1679 1187; Add 1650 1650 1670; Sub 1679 1679 1650; Add 1442 1442 1679; Add 1442 1442 1132;
  Add 1142 1142 1419; Add 1422 1422 1203; Sub 1142 1142 1422; Add 1532 1532 1173; Add 1618 1618 1257;
  Add 1532 1532 1618; Add 1467 1467 1460; Add 1274 1274 1416; Sub 1467 1467 1274; Add 1532 1532 1467;
  Sub 1142 1142 1532; Add 1142 1142 1213; Add 1347 1347 1556; Add 1271 1271 1544; Sub 1347 1347 1271;
  Add 1417 1417 1649; Add 1309 1309 1277; Add 1417 1417 1309; Add 1154 1154 1661; Add 1402 1402 1224;
  Sub 1154 1154 1402; Add 1417 1417 1154; Sub 1347 1347 1417; Add 1347 1347 1454; Add 1169 1169 1314;
  Add 1529 1529 1168; Sub 1169 1169 1529; Add 1652 1652 1425; Add 1671 1671 1662; Add 1652 1652 1671;
  Add 1522 1522 1022; Add 1523 1523 1607; Sub 1522 1522 1523; Add 1652 1652 1522; Sub 1169 1169 1652;
  Add 1169 1169 1190; Add 1311 1311 1431; Add 1353 1353 1189; Sub 1311 1311 1353; Add 1284 1284 1318;
  Add 1317 1317 1108; Add 1284 1284 1317; Add 1150 1150 1370; Add 1279 1279 1488; Sub 1150 1150 1279;
  Add 1284 1284 1150; Sub 1311 1311 1284; Add 1311 1311 1096; Add 1169 1169 1311; Add 1347 1347 1169;
  Add 1142 1142 1347; Add 1442 1442 1142; Mul 1442 216 1442; Mul 1096 507 1543; Sub 1442 1442 1096;
  Add 1030 1030 1622; Sub 1674 1674 1499; Sub 1030 1030 1674; Sub 1427 1427 1673; Add 1030 1030 1427;
  Add 1654 1654 1395; Sub 1386 1386 1265; Sub 1654 1654 1386; Sub 1270 1270 1369; Add 1654 1654 1270;
  Add 1339 1339 1266; Sub 1156 1156 1602; Sub 1339 1339 1156; Sub 1228 1228 1441; Add 1339 1339 1228;
  Add 1669 1669 1555; Sub 1103 1103 1594; Sub 1669 1669 1103; Sub 1018 1018 1593; Add 1669 1669 1018;
  Add 1300 1300 1112; Sub 1513 1513 1256; Sub 1300 1300 1513; Sub 1509 1509 1563; Add 1300 1300 1509;
  Add 1669 1669 1300; Add 1339 1339 1669; Add 1654 1654 1339; Add 1030 1030 1654; Mul 1030 215 1030;
  Mul 1509 226 1675; Add 1030 1030 1509; Sub 1442 1442 1030; Sub 1344 1344 1448; Sub 1495 1495 1589;
  Sub 1392 1392 1463; Sub 1210 1210 1487; Sub 1227 1227 1391; Add 1210 1210 1227; Add 1392 1392 1210;
  Add 1495 1495 1392; Add 1344 1344 1495; Mul 1391 540 1344; Mul 1487 805 1133; Sub 1391 1391 1487;
  Add 1130 1130 1528; Sub 1377 1377 1130; Sub 1130 1377 1512; Add 1434 1434 1365].
Definition casadi_f0_171 : list instruction := [
  Add 1660 1660 1456; Add 1051 1051 1660; Sub 1434 1434 1051; Add 1051 1434 1610; Add 1502 1502 1032;
  Add 1538 1538 1475; Add 1144 1144 1538; Sub 1502 1502 1144; Add 1144 1502 1243; Add 1195 1195 1222;
  Add 1338 1338 1492; Add 1345 1345 1338; Sub 1195 1195 1345; Add 1345 1195 1409; Add 1244 1244 1346;
  Add 1648 1648 1382; Add 1579 1579 1648; Sub 1244 1244 1579; Add 1579 1244 1515; Add 1345 1345 1579;
  Add 1144 1144 1345; Add 1051 1051 1144; Add 1130 1130 1051; Mul 1130 544 1130; Mul 1648 693 1694;
  Add 1130 1130 1648; Add 1391 1391 1130; Sub 1442 1442 1391; Add 1450 1450 1442; Mul 1450 215 1450;
  Add 1592 1592 1450; Sub 1644 1644 1592; Sub 1182 1182 1512; Add 1308 1308 1610; Add 1443 1443 1243;
  Add 1682 1682 1409; Add 1421 1421 1515; Add 1682 1682 1421; Add 1443 1443 1682; Add 1308 1308 1443;
  Add 1182 1182 1308; Mul 1182 216 1182; Mul 1592 305 1543; Sub 1182 1182 1592; Mul 1344 215 1344;
  Mul 1592 805 1675; Add 1344 1344 1592; Sub 1182 1182 1344; Add 1698 1698 1182; Mul 1698 540 1698;
  Mul 1182 307 1133; Sub 1698 1698 1182; Mul 1182 360 1694; Mul 1503 216 1503; Mul 1344 806 1543;
  Sub 1503 1503 1344; Add 1377 1377 1512; Sub 1434 1434 1610; Sub 1502 1502 1243; Sub 1195 1195 1409;
  Sub 1244 1244 1515; Add 1195 1195 1244; Add 1502 1502 1195; Add 1434 1434 1502; Add 1377 1377 1434;
  Mul 1377 215 1377; Mul 1515 700 1675; Add 1377 1377 1515; Sub 1503 1503 1377; Add 1163 1163 1503;
  Mul 1163 544 1163; Add 1182 1182 1163; Add 1698 1698 1182; Sub 1644 1644 1698; Mul 1644 1 1644;
  Mul 1698 469 1181; Add 1644 1644 1698; Add 1157 1157 1644; Mul 1644 602 1320; Mul 1698 783 1681;
  Add 1644 1644 1698; Mul 1698 670 1572; Mul 1182 488 1491; Add 1698 1698 1182; Add 1644 1644 1698;
  Mul 1698 671 1536; Mul 1182 532 1206; Add 1698 1698 1182; Sub 1644 1644 1698; Mul 1698 679 1363;
  Mul 1182 523 1124; Add 1698 1698 1182; Mul 1182 796 1518; Mul 1546 680 1546; Mul 1163 255 1250;
  Add 1546 1546 1163; Mul 1052 674 1052; Mul 1163 278 1114; Sub 1052 1052 1163; Sub 1546 1546 1052;
  Mul 1084 216 1084; Mul 1052 294 1543; Sub 1084 1084 1052; Mul 1017 215 1017; Mul 1052 299 1675;
  Add 1017 1017 1052; Add 1084 1084 1017; Sub 1546 1546 1084; Mul 1084 670 1518; Mul 1017 502 1491;
  Add 1084 1084 1017; Mul 1017 602 1549; Mul 1052 505 1681; Add 1017 1017 1052; Sub 1084 1084 1017;
  Sub 1084 1546 1084; Mul 1084 672 1084; Mul 1017 502 1084; Add 1182 1182 1017; Sub 1698 1698 1182;
  Add 1644 1644 1698; Mul 1698 674 1199; Mul 1182 794 1114; Sub 1698 1698 1182; Mul 1182 680 1110;
  Mul 1017 689 1250; Add 1052 1182 1017; Add 1194 1194 1489; Add 1288 1288 1165; Add 1554 1554 1288;
  Sub 1194 1194 1554; Add 1554 1194 1296; Add 1507 1507 1511; Add 1324 1324 1445; Add 1520 1520 1324;
  Sub 1507 1507 1520; Add 1520 1507 1305; Add 1100 1100 1510; Add 1107 1107 1316; Add 1474 1474 1107;
  Sub 1100 1100 1474; Add 1474 1100 1292; Add 1418 1418 1547; Add 1289 1289 1394; Add 1668 1668 1289;
  Sub 1418 1418 1668; Add 1668 1418 1605; Add 1474 1474 1668; Add 1520 1520 1474].
Definition casadi_f0_172 : list instruction := [
  Add 1554 1554 1520; Mul 1554 676 1554; Mul 1289 410 1188; Add 1554 1554 1289; Sub 1052 1052 1554;
  Add 1698 1698 1052; Mul 1052 215 1208; Mul 1554 461 1675; Add 1052 1052 1554; Mul 1642 216 1642;
  Mul 1554 277 1543; Sub 1642 1642 1554; Sub 1052 1052 1642; Add 1698 1698 1052; Add 1644 1644 1698;
  Mul 1644 216 1644; Mul 1698 707 1543; Sub 1644 1644 1698; Mul 1698 793 1675; Mul 1052 602 1310;
  Mul 1554 491 1681; Add 1052 1052 1554; Mul 1554 670 1320; Mul 1289 783 1491; Add 1554 1554 1289;
  Add 1052 1052 1554; Mul 1554 671 1337; Mul 1289 517 1206; Add 1554 1554 1289; Sub 1052 1052 1554;
  Mul 1554 796 1549; Mul 1289 505 1084; Add 1554 1554 1289; Mul 1289 675 1363; Mul 1394 523 1588;
  Add 1289 1289 1394; Sub 1554 1554 1289; Add 1052 1052 1554; Mul 1554 674 1495; Mul 1289 682 1114;
  Sub 1554 1554 1289; Mul 1289 680 1051; Mul 1394 808 1250; Add 1289 1289 1394; Add 1384 1384 1464;
  Sub 1196 1196 1384; Add 1380 1380 1609; Add 1196 1196 1380; Sub 1380 1196 1465; Add 1477 1477 1471;
  Sub 1216 1216 1477; Add 1458 1458 1480; Add 1216 1216 1458; Sub 1458 1216 1358; Add 1207 1207 1476;
  Sub 1307 1307 1207; Add 1493 1493 1406; Add 1307 1307 1493; Sub 1493 1307 1490; Add 1111 1111 1478;
  Sub 1672 1672 1111; Add 1494 1494 1261; Add 1672 1672 1494; Sub 1494 1672 1504; Add 1493 1493 1494;
  Add 1458 1458 1493; Add 1380 1380 1458; Mul 1380 676 1380; Mul 1261 301 1188; Add 1380 1380 1261;
  Sub 1289 1289 1380; Add 1289 1554 1289; Mul 1654 215 1654; Mul 1380 303 1675; Add 1261 1654 1380;
  Mul 1111 216 1142; Mul 1478 468 1543; Sub 1111 1111 1478; Sub 1261 1261 1111; Add 1289 1289 1261;
  Add 1052 1052 1289; Mul 1052 215 1052; Add 1698 1698 1052; Sub 1052 1644 1698; Mul 1495 215 1495;
  Mul 1289 682 1675; Add 1261 1495 1289; Mul 1111 216 1308; Mul 1478 792 1543; Sub 1111 1111 1478;
  Sub 1261 1261 1111; Add 1124 1124 1261; Mul 1261 540 1124; Mul 1111 233 1133; Sub 1261 1261 1111;
  Mul 1111 789 1694; Mul 1478 215 1434; Mul 1406 686 1675; Add 1478 1478 1406; Mul 1110 216 1110;
  Mul 1406 689 1543; Sub 1110 1110 1406; Sub 1478 1478 1110; Add 1588 1588 1478; Mul 1478 544 1588;
  Add 1111 1111 1478; Add 1261 1261 1111; Sub 1052 1052 1261; Mul 1052 2 1052; Mul 1261 285 1412;
  Add 1052 1052 1261; Add 1157 1157 1052; Mul 1052 677 1313; Mul 1261 530 1535; Add 1052 1052 1261;
  Mul 1261 706 1225; Mul 1111 782 1091; Add 1261 1261 1111; Mul 1111 712 1355; Mul 1478 481 1285;
  Add 1111 1111 1478; Add 1261 1261 1111; Sub 1052 1052 1261; Mul 1261 719 1071; Mul 1111 519 1584;
  Add 1261 1261 1111; Mul 1111 709 1401; Mul 1599 216 1599; Mul 1478 348 1543; Sub 1599 1599 1478;
  Mul 1468 215 1468; Mul 1478 353 1675; Add 1468 1468 1478; Add 1599 1599 1468; Mul 1677 714 1677;
  Mul 1468 332 1263; Add 1677 1677 1468; Mul 1665 718 1665; Mul 1468 309 1237; Add 1665 1665 1468;
  Sub 1677 1677 1665; Add 1599 1599 1677; Mul 1677 706 1640; Mul 1665 497 1091; Add 1677 1677 1665;
  Mul 1665 712 1401; Mul 1468 494 1285; Add 1665 1665 1468; Sub 1677 1677 1665].
Definition casadi_f0_173 : list instruction := [
  Sub 1677 1599 1677; Mul 1677 156 1677; Mul 1665 494 1677; Add 1111 1111 1665; Sub 1261 1261 1111;
  Add 1052 1052 1261; Mul 1261 716 1520; Mul 1111 403 1321; Add 1261 1261 1111; Mul 1111 718 1097;
  Mul 1665 696 1237; Add 1468 1111 1665; Sub 1261 1261 1468; Mul 1468 714 1636; Mul 1478 797 1263;
  Add 1468 1468 1478; Sub 1261 1261 1468; Mul 1678 216 1678; Mul 1468 331 1543; Sub 1678 1678 1468;
  Mul 1468 215 1542; Mul 1478 414 1675; Add 1468 1468 1478; Sub 1468 1678 1468; Add 1261 1261 1468;
  Add 1052 1052 1261; Mul 1052 216 1052; Mul 1261 790 1543; Sub 1052 1052 1261; Mul 1261 704 1675;
  Mul 1468 677 1408; Mul 1478 513 1535; Add 1468 1468 1478; Mul 1478 706 1573; Mul 1406 483 1091;
  Add 1478 1478 1406; Mul 1406 712 1225; Mul 1207 782 1285; Add 1406 1406 1207; Add 1478 1478 1406;
  Sub 1468 1468 1478; Mul 1478 709 1640; Mul 1406 497 1677; Add 1478 1478 1406; Mul 1406 711 1071;
  Mul 1207 519 1435; Add 1406 1406 1207; Sub 1478 1478 1406; Add 1468 1468 1478; Mul 1478 716 1458;
  Mul 1406 293 1321; Add 1478 1478 1406; Mul 1406 718 1144; Mul 1207 415 1237; Add 1406 1406 1207;
  Sub 1478 1478 1406; Mul 1406 714 1392; Mul 1207 685 1263; Add 1476 1406 1207; Sub 1478 1478 1476;
  Mul 1476 216 1347; Mul 1480 416 1543; Sub 1476 1476 1480; Mul 1339 215 1339; Mul 1480 357 1675;
  Add 1477 1339 1480; Sub 1476 1476 1477; Add 1478 1478 1476; Add 1468 1468 1478; Mul 1468 215 1468;
  Add 1261 1261 1468; Sub 1468 1052 1261; Mul 1478 216 1443; Mul 1476 795 1543; Sub 1478 1478 1476;
  Mul 1392 215 1392; Mul 1476 685 1675; Add 1477 1392 1476; Sub 1478 1478 1477; Add 1584 1584 1478;
  Mul 1478 540 1584; Mul 1477 697 1133; Sub 1478 1478 1477; Mul 1477 695 1694; Mul 1097 216 1097;
  Mul 1471 696 1543; Sub 1097 1097 1471; Mul 1471 215 1502; Mul 1609 448 1675; Add 1471 1471 1609;
  Sub 1471 1097 1471; Add 1435 1435 1471; Mul 1471 544 1435; Add 1477 1477 1471; Add 1478 1478 1477;
  Sub 1478 1468 1478; Mul 1478 3 1478; Mul 1477 691 1036; Add 1478 1478 1477; Add 1157 1157 1478;
  Mul 1478 715 1340; Mul 1477 606 1125; Add 1478 1478 1477; Mul 1477 721 1268; Mul 1471 786 1104;
  Add 1477 1477 1471; Add 1478 1478 1477; Mul 1477 722 1368; Mul 1471 528 1312; Add 1477 1477 1471;
  Add 1478 1478 1477; Mul 1477 730 1444; Mul 1471 515 1254; Add 1477 1477 1471; Mul 1471 683 1245;
  Mul 1514 310 1514; Mul 1609 408 1161; Add 1514 1514 1609; Mul 1663 327 1663; Mul 1609 404 1315;
  Add 1663 1663 1609; Sub 1514 1514 1663; Mul 1389 731 1389; Mul 1663 363 1635; Add 1389 1389 1663;
  Mul 1341 725 1341; Mul 1663 387 1548; Add 1341 1341 1663; Sub 1389 1389 1341; Add 1514 1514 1389;
  Mul 1389 721 1245; Mul 1341 486 1104; Add 1389 1389 1341; Mul 1341 715 1287; Mul 1663 489 1125;
  Add 1341 1341 1663; Sub 1389 1389 1341; Sub 1389 1514 1389; Mul 1389 723 1389; Mul 1341 486 1389;
  Add 1471 1471 1341; Sub 1477 1477 1471; Add 1478 1478 1477; Mul 1477 725 1218; Mul 1471 800 1548;
  Add 1477 1477 1471; Mul 1471 731 1170; Mul 1341 703 1635; Add 1663 1471 1341].
Definition casadi_f0_174 : list instruction := [
  Mul 1609 727 1474; Mul 1384 306 1449; Add 1609 1609 1384; Add 1663 1663 1609; Add 1477 1477 1663;
  Mul 1663 310 1587; Mul 1609 361 1161; Add 1663 1663 1609; Mul 1655 327 1655; Mul 1609 386 1315;
  Add 1384 1655 1609; Mul 1464 318 1146; Mul 1394 59 1469; Add 1464 1464 1394; Add 1384 1384 1464;
  Add 1663 1663 1384; Sub 1477 1477 1663; Add 1478 1478 1477; Mul 1477 216 1478; Mul 1663 690 1543;
  Sub 1477 1477 1663; Mul 1663 807 1675; Mul 1384 715 1625; Mul 1464 705 1125; Add 1384 1384 1464;
  Mul 1464 721 1340; Mul 1394 606 1104; Add 1464 1464 1394; Add 1384 1384 1464; Mul 1464 722 1387;
  Mul 1394 510 1312; Add 1464 1464 1394; Add 1384 1384 1464; Mul 1464 683 1287; Mul 1394 489 1389;
  Add 1464 1464 1394; Mul 1394 726 1444; Mul 1547 515 1275; Add 1394 1394 1547; Sub 1464 1464 1394;
  Add 1384 1384 1464; Mul 1464 725 1210; Mul 1394 692 1548; Add 1547 1464 1394; Mul 1107 731 1345;
  Mul 1316 465 1635; Add 1107 1107 1316; Mul 1316 727 1493; Mul 1510 785 1449; Add 1316 1316 1510;
  Add 1107 1107 1316; Add 1547 1547 1107; Mul 1669 310 1669; Mul 1107 412 1161; Add 1316 1669 1107;
  Mul 1510 327 1169; Mul 1324 407 1315; Add 1510 1510 1324; Mul 1324 318 1590; Mul 1445 580 1469;
  Add 1324 1324 1445; Add 1510 1510 1324; Add 1316 1316 1510; Sub 1547 1547 1316; Add 1384 1384 1547;
  Mul 1547 215 1384; Add 1663 1663 1547; Sub 1547 1477 1663; Mul 1210 310 1210; Mul 1316 692 1161;
  Add 1510 1210 1316; Mul 1324 327 1682; Mul 1445 798 1315; Add 1324 1324 1445; Mul 1445 318 1486;
  Mul 1511 640 1469; Add 1445 1445 1511; Add 1324 1324 1445; Add 1510 1510 1324; Sub 1254 1254 1510;
  Mul 1510 540 1254; Mul 1324 811 1133; Sub 1510 1510 1324; Mul 1324 813 1694; Mul 1445 310 1195;
  Mul 1511 464 1161; Add 1445 1445 1511; Mul 1170 327 1170; Mul 1511 703 1315; Add 1288 1170 1511;
  Mul 1165 318 1193; Mul 1489 662 1469; Add 1165 1165 1489; Add 1288 1288 1165; Add 1445 1445 1288;
  Sub 1275 1275 1445; Mul 1445 544 1275; Add 1324 1324 1445; Add 1510 1510 1324; Sub 1510 1547 1510;
  Mul 1510 4 1510; Mul 1324 812 1098; Add 1510 1510 1324; Add 1157 1157 1510; Mul 1510 728 1378;
  Mul 1324 609 1179; Add 1510 1510 1324; Mul 1324 733 1481; Mul 1445 604 1231; Add 1324 1324 1445;
  Add 1510 1510 1324; Mul 1324 734 1484; Mul 1445 426 1177; Add 1324 1324 1445; Add 1510 1510 1324;
  Mul 1324 739 1411; Mul 1445 438 1134; Add 1324 1324 1445; Mul 1445 816 1375; Mul 1531 358 1531;
  Mul 1288 462 1657; Add 1531 1531 1288; Mul 1376 372 1376; Mul 1288 458 1159; Add 1376 1376 1288;
  Sub 1531 1531 1376; Mul 1223 741 1223; Mul 1376 417 1360; Add 1223 1223 1376; Mul 1282 736 1282;
  Mul 1376 441 1217; Add 1282 1282 1376; Sub 1223 1223 1282; Add 1531 1531 1223; Mul 1223 733 1375;
  Mul 1282 445 1231; Add 1223 1223 1282; Mul 1282 728 1171; Mul 1376 434 1179; Add 1282 1282 1376;
  Sub 1223 1223 1282; Sub 1531 1531 1223; Mul 1531 430 1531; Mul 1223 445 1531; Add 1445 1445 1223;
  Sub 1324 1324 1445; Add 1510 1510 1324; Mul 1324 736 1116; Mul 1445 803 1217].
Definition casadi_f0_175 : list instruction := [
  Add 1324 1324 1445; Mul 1445 741 1092; Mul 1223 710 1360; Add 1282 1445 1223; Mul 1376 738 1668;
  Mul 1288 356 1440; Add 1376 1376 1288; Add 1282 1282 1376; Add 1324 1324 1282; Mul 1282 358 1597;
  Mul 1376 352 1657; Add 1282 1282 1376; Mul 1362 372 1362; Mul 1376 440 1159; Add 1288 1362 1376;
  Mul 1165 369 1131; Mul 1489 36 1372; Add 1165 1165 1489; Add 1288 1288 1165; Add 1282 1282 1288;
  Sub 1324 1324 1282; Add 1510 1510 1324; Mul 1324 216 1510; Mul 1282 814 1543; Sub 1324 1324 1282;
  Mul 1282 817 1675; Mul 1179 13 1179; Mul 1288 728 1497; Sub 1179 1179 1288; Mul 1288 733 1378;
  Mul 1231 609 1231; Add 1288 1288 1231; Add 1179 1179 1288; Mul 1288 734 1403; Mul 1177 443 1177;
  Add 1288 1288 1177; Add 1179 1179 1288; Mul 1288 816 1171; Mul 1177 434 1531; Add 1288 1288 1177;
  Mul 1177 735 1411; Mul 1231 438 1415; Add 1177 1177 1231; Sub 1288 1288 1177; Add 1179 1179 1288;
  Mul 1288 736 1227; Mul 1177 699 1217; Add 1231 1288 1177; Mul 1165 741 1579; Mul 1489 394 1360;
  Add 1165 1165 1489; Mul 1489 738 1494; Mul 1163 245 1440; Add 1489 1489 1163; Add 1165 1165 1489;
  Add 1231 1231 1165; Mul 1300 358 1300; Mul 1165 466 1657; Add 1489 1300 1165; Mul 1163 372 1311;
  Mul 1503 359 1159; Add 1163 1163 1503; Mul 1503 369 1352; Mul 1377 593 1372; Add 1503 1503 1377;
  Add 1163 1163 1503; Add 1489 1489 1163; Sub 1231 1231 1489; Add 1179 1179 1231; Mul 1231 215 1179;
  Add 1282 1282 1231; Sub 1231 1324 1282; Mul 1227 358 1227; Mul 1489 699 1657; Add 1163 1227 1489;
  Mul 1503 372 1421; Mul 1377 801 1159; Add 1503 1503 1377; Mul 1377 369 1506; Mul 1515 645 1372;
  Add 1377 1377 1515; Add 1503 1503 1377; Add 1163 1163 1503; Sub 1134 1134 1163; Mul 1163 540 1134;
  Mul 1503 820 1133; Sub 1163 1163 1503; Mul 1503 822 1694; Mul 1377 358 1244; Mul 1515 457 1657;
  Add 1377 1377 1515; Mul 1092 372 1092; Mul 1515 710 1159; Add 1409 1092 1515; Mul 1243 369 1330;
  Mul 1610 666 1372; Add 1243 1243 1610; Add 1409 1409 1243; Add 1377 1377 1409; Sub 1415 1415 1377;
  Mul 1377 544 1415; Add 1503 1503 1377; Add 1163 1163 1503; Sub 1163 1231 1163; Mul 1163 5 1163;
  Mul 1503 821 1611; Add 1163 1163 1503; Add 1157 1157 1163; Mul 1683 85 1683; Mul 1149 79 1149;
  Sub 1683 1683 1149; Mul 1689 54 1689; Mul 1241 61 1241; Sub 1689 1689 1241; Mul 1699 19 1699;
  Mul 1241 763 1053; Sub 1699 1699 1241; Mul 1241 751 1453; Mul 1693 35 1693; Add 1241 1241 1693;
  Sub 1699 1699 1241; Mul 1700 55 1700; Mul 1062 62 1062; Sub 1700 1700 1062; Add 1699 1699 1700;
  Add 1689 1689 1699; Mul 1281 86 1281; Mul 1696 91 1696; Sub 1281 1281 1696; Add 1281 1689 1281;
  Add 1683 1683 1281; Mul 1038 102 1038; Sub 1038 1683 1038; Mul 1118 101 1118; Add 1038 1038 1118;
  Add 1157 1157 1038; Mul 1038 777 1157; Sub 1451 1451 1038; Add 1349 1349 1451; Div 1451 1621 92;
  Mul 1038 1023 1086; Sub 1451 1451 1038; Mul 1038 767 1451; Mul 1374 674 1374; Mul 1118 630 1114;
  Sub 1374 1374 1118; Mul 1118 654 1250; Mul 1550 680 1550; Add 1118 1118 1550].
Definition casadi_f0_176 : list instruction := [
  Add 1371 1371 1139; Sub 1118 1118 1371; Add 1374 1374 1118; Mul 1118 615 1675; Mul 1234 215 1234;
  Add 1118 1118 1234; Mul 1447 216 1447; Mul 1234 7 1543; Sub 1447 1447 1234; Sub 1118 1118 1447;
  Add 1374 1374 1118; Mul 1374 0 1374; Mul 1118 771 1081; Add 1374 1374 1118; Mul 1118 748 1686;
  Mul 1447 216 1363; Mul 1234 523 1543; Sub 1447 1447 1234; Add 1447 1114 1447; Mul 1447 672 1447;
  Mul 1234 545 1447; Sub 1118 1118 1234; Mul 1234 216 1518; Mul 1371 502 1543; Sub 1234 1234 1371;
  Mul 1371 215 1549; Mul 1139 505 1675; Add 1371 1371 1139; Add 1234 1234 1371; Sub 1234 1234 1188;
  Mul 1234 672 1234; Mul 1371 504 1234; Mul 1139 750 1667; Add 1371 1371 1139; Mul 1139 215 1363;
  Mul 1550 523 1675; Add 1139 1139 1550; Sub 1139 1250 1139; Mul 1139 672 1139; Mul 1550 541 1139;
  Mul 1281 627 1209; Add 1550 1550 1281; Sub 1371 1371 1550; Add 1118 1118 1371; Mul 1337 215 1337;
  Mul 1371 517 1675; Add 1337 1337 1371; Mul 1536 216 1536; Mul 1371 532 1543; Sub 1536 1536 1371;
  Sub 1337 1337 1536; Mul 1536 627 1518; Mul 1371 502 1139; Add 1536 1536 1371; Mul 1371 748 1549;
  Mul 1550 505 1447; Sub 1371 1371 1550; Sub 1536 1536 1371; Add 1337 1337 1536; Mul 1337 508 1337;
  Mul 1536 744 1393; Add 1337 1337 1536; Mul 1536 215 1320; Mul 1371 783 1675; Add 1536 1536 1371;
  Mul 1572 216 1572; Mul 1371 488 1543; Sub 1572 1572 1371; Sub 1536 1536 1572; Mul 1572 748 1363;
  Mul 1447 523 1447; Sub 1572 1572 1447; Mul 1518 750 1518; Mul 1447 502 1234; Add 1518 1518 1447;
  Sub 1572 1572 1518; Add 1536 1536 1572; Mul 1536 536 1536; Mul 1572 824 1215; Add 1536 1536 1572;
  Sub 1337 1337 1536; Mul 1310 215 1310; Mul 1536 491 1675; Add 1310 1310 1536; Mul 1320 216 1320;
  Mul 1536 783 1543; Sub 1320 1320 1536; Sub 1310 1310 1320; Mul 1549 750 1549; Mul 1234 505 1234;
  Add 1549 1549 1234; Mul 1363 627 1363; Mul 1139 523 1139; Add 1363 1363 1139; Sub 1549 1549 1363;
  Add 1310 1310 1549; Mul 1310 526 1310; Mul 1549 825 1164; Add 1310 1310 1549; Sub 1337 1337 1310;
  Add 1118 1118 1337; Mul 1308 674 1308; Mul 1337 792 1114; Sub 1308 1308 1337; Add 1017 1017 1182;
  Mul 1182 298 1188; Sub 1194 1194 1296; Sub 1507 1507 1305; Sub 1100 1100 1292; Sub 1418 1418 1605;
  Add 1100 1100 1418; Add 1507 1507 1100; Add 1194 1194 1507; Mul 1605 676 1194; Add 1182 1182 1605;
  Sub 1017 1017 1182; Add 1308 1308 1017; Mul 1017 468 1675; Mul 1142 215 1142; Add 1017 1017 1142;
  Sub 1017 1017 1642; Add 1308 1308 1017; Mul 1308 216 1308; Mul 1017 823 1543; Sub 1308 1308 1017;
  Mul 1017 686 1250; Mul 1434 680 1434; Add 1017 1017 1434; Mul 1434 232 1188; Add 1196 1196 1465;
  Add 1216 1216 1358; Add 1307 1307 1490; Add 1672 1672 1504; Add 1307 1307 1672; Add 1216 1216 1307;
  Add 1196 1196 1216; Mul 1504 676 1196; Add 1434 1434 1504; Sub 1017 1017 1434; Add 1554 1554 1017;
  Add 1380 1380 1654; Mul 1208 216 1208; Mul 1654 461 1543; Sub 1208 1208 1654; Sub 1380 1380 1208;
  Add 1554 1554 1380; Mul 1554 215 1554; Mul 1380 668 1675; Add 1554 1554 1380].
Definition casadi_f0_177 : list instruction := [
  Sub 1308 1308 1554; Add 1289 1289 1495; Mul 1199 216 1199; Mul 1495 794 1543; Sub 1199 1199 1495;
  Sub 1289 1289 1199; Mul 1289 540 1289; Mul 1199 664 1133; Sub 1289 1289 1199; Mul 1199 808 1675;
  Mul 1051 215 1051; Add 1199 1199 1051; Sub 1199 1199 1110; Mul 1199 544 1199; Mul 1110 642 1694;
  Add 1199 1199 1110; Add 1289 1289 1199; Sub 1308 1308 1289; Add 1118 1118 1308; Mul 1118 1 1118;
  Mul 1308 760 1181; Add 1118 1118 1308; Add 1374 1374 1118; Mul 1124 674 1124; Mul 1118 233 1114;
  Sub 1124 1124 1118; Mul 1118 789 1250; Mul 1588 680 1588; Add 1118 1118 1588; Mul 1588 637 1188;
  Mul 1196 215 1196; Mul 1308 232 1675; Add 1196 1196 1308; Mul 1194 216 1194; Mul 1308 298 1543;
  Sub 1194 1194 1308; Sub 1196 1196 1194; Add 1084 1084 1196; Mul 1084 676 1084; Add 1588 1588 1084;
  Sub 1118 1118 1588; Add 1124 1124 1118; Sub 1698 1698 1644; Add 1124 1124 1698; Mul 1124 2 1124;
  Mul 1698 826 1412; Add 1124 1124 1698; Add 1374 1374 1124; Mul 1124 674 1584; Mul 1698 697 1114;
  Sub 1124 1124 1698; Mul 1698 695 1250; Mul 1644 680 1435; Add 1698 1698 1644; Mul 1644 647 1188;
  Mul 1118 216 1507; Mul 1588 411 1543; Sub 1118 1118 1588; Mul 1588 215 1216; Mul 1084 302 1675;
  Add 1588 1588 1084; Sub 1118 1118 1588; Add 1677 1677 1118; Mul 1118 676 1677; Add 1644 1644 1118;
  Sub 1698 1698 1644; Add 1124 1124 1698; Sub 1261 1261 1052; Add 1124 1124 1261; Mul 1124 3 1124;
  Mul 1261 347 1036; Add 1124 1124 1261; Add 1374 1374 1124; Mul 1124 674 1254; Mul 1261 811 1114;
  Sub 1124 1124 1261; Mul 1261 813 1250; Mul 1052 680 1275; Add 1261 1261 1052; Mul 1052 802 1188;
  Mul 1698 310 1307; Mul 1644 252 1161; Add 1698 1698 1644; Mul 1644 327 1100; Mul 1118 339 1315;
  Add 1644 1644 1118; Mul 1470 318 1470; Mul 1118 701 1469; Add 1588 1470 1118; Add 1644 1644 1588;
  Add 1698 1698 1644; Sub 1389 1389 1698; Mul 1698 676 1389; Add 1052 1052 1698; Sub 1261 1261 1052;
  Add 1124 1124 1261; Sub 1663 1663 1477; Add 1124 1124 1663; Mul 1124 4 1124; Mul 1663 698 1098;
  Add 1124 1124 1663; Add 1374 1374 1124; Mul 1124 674 1134; Mul 1663 820 1114; Sub 1124 1124 1663;
  Mul 1663 822 1250; Mul 1477 680 1415; Add 1663 1663 1477; Mul 1477 788 1188; Mul 1261 358 1672;
  Mul 1052 234 1657; Add 1261 1261 1052; Mul 1052 372 1418; Mul 1698 355 1159; Add 1052 1052 1698;
  Mul 1367 369 1367; Mul 1698 708 1372; Add 1644 1367 1698; Add 1052 1052 1644; Add 1261 1261 1052;
  Sub 1531 1531 1261; Mul 1261 676 1531; Add 1477 1477 1261; Sub 1663 1663 1477; Add 1124 1124 1663;
  Sub 1282 1282 1324; Add 1124 1124 1282; Mul 1124 5 1124; Mul 1282 809 1611; Add 1124 1124 1282;
  Add 1374 1374 1124; Sub 1683 1683 1374; Mul 1374 778 1683; Add 1038 1038 1374; Sub 1349 1349 1038;
  Div 1038 1028 92; Mul 1374 1516 1086; Sub 1038 1038 1374; Mul 1374 775 1038; Add 1145 1145 1120;
  Mul 1120 658 1237; Mul 1551 718 1551; Add 1120 1120 1551; Sub 1145 1145 1120; Mul 1120 635 1263;
  Mul 1479 714 1479; Add 1120 1120 1479; Sub 1145 1145 1120; Mul 1174 216 1174].
Definition casadi_f0_178 : list instruction := [
  Mul 1120 90 1543; Sub 1174 1174 1120; Mul 1120 566 1675; Mul 1251 215 1251; Add 1120 1120 1251;
  Sub 1174 1174 1120; Add 1145 1145 1174; Mul 1145 0 1145; Mul 1174 818 1081; Add 1145 1145 1174;
  Mul 1174 216 1071; Mul 1120 519 1543; Sub 1174 1174 1120; Sub 1174 1174 1263; Mul 1174 156 1174;
  Mul 1120 545 1174; Mul 1251 684 1686; Add 1120 1120 1251; Mul 1251 216 1401; Mul 1479 494 1543;
  Sub 1251 1251 1479; Mul 1479 215 1640; Mul 1551 497 1675; Add 1479 1479 1551; Add 1251 1251 1479;
  Sub 1251 1321 1251; Mul 1251 156 1251; Mul 1479 504 1251; Mul 1551 660 1667; Add 1479 1479 1551;
  Mul 1551 215 1071; Mul 1124 519 1675; Add 1551 1551 1124; Sub 1551 1551 1237; Mul 1551 156 1551;
  Mul 1124 541 1551; Mul 1282 827 1209; Add 1124 1124 1282; Sub 1479 1479 1124; Add 1120 1120 1479;
  Mul 1313 216 1313; Mul 1479 530 1543; Sub 1313 1313 1479; Mul 1408 215 1408; Mul 1479 513 1675;
  Add 1408 1408 1479; Sub 1313 1313 1408; Mul 1408 827 1401; Mul 1479 494 1551; Add 1408 1408 1479;
  Mul 1479 684 1640; Mul 1124 497 1174; Add 1479 1479 1124; Sub 1408 1408 1479; Add 1313 1313 1408;
  Mul 1408 508 1313; Mul 1479 656 1393; Add 1408 1408 1479; Mul 1355 216 1355; Mul 1479 481 1543;
  Sub 1355 1355 1479; Mul 1479 215 1225; Mul 1124 782 1675; Add 1479 1479 1124; Sub 1355 1355 1479;
  Mul 1479 684 1071; Mul 1124 519 1174; Add 1479 1479 1124; Mul 1401 660 1401; Mul 1124 494 1251;
  Add 1401 1401 1124; Sub 1479 1479 1401; Add 1355 1355 1479; Mul 1479 536 1355; Mul 1401 829 1215;
  Add 1479 1479 1401; Sub 1408 1408 1479; Mul 1225 216 1225; Mul 1479 782 1543; Sub 1225 1225 1479;
  Mul 1573 215 1573; Mul 1479 483 1675; Add 1573 1573 1479; Sub 1225 1225 1573; Mul 1640 660 1640;
  Mul 1573 497 1251; Add 1640 1640 1573; Mul 1071 827 1071; Mul 1573 519 1551; Add 1071 1071 1573;
  Sub 1640 1640 1071; Add 1225 1225 1640; Mul 1640 526 1225; Mul 1071 830 1164; Add 1640 1640 1071;
  Sub 1408 1408 1640; Add 1120 1120 1408; Mul 1408 411 1321; Mul 1507 716 1507; Add 1408 1408 1507;
  Add 1665 1665 1111; Sub 1408 1408 1665; Mul 1665 795 1263; Mul 1443 714 1443; Add 1665 1665 1443;
  Sub 1408 1408 1665; Mul 1665 416 1675; Mul 1347 215 1347; Add 1665 1665 1347; Sub 1678 1678 1665;
  Add 1408 1408 1678; Mul 1408 216 1408; Mul 1678 828 1543; Sub 1408 1408 1678; Mul 1678 302 1321;
  Mul 1216 716 1216; Add 1678 1678 1216; Mul 1216 448 1237; Mul 1502 718 1502; Add 1216 1216 1502;
  Sub 1678 1678 1216; Add 1207 1207 1406; Sub 1678 1678 1207; Mul 1542 216 1542; Mul 1207 414 1543;
  Sub 1542 1542 1207; Add 1480 1480 1339; Sub 1542 1542 1480; Add 1678 1678 1542; Mul 1678 215 1678;
  Mul 1542 832 1675; Add 1678 1678 1542; Sub 1542 1408 1678; Mul 1636 216 1636; Mul 1480 797 1543;
  Sub 1636 1636 1480; Add 1476 1476 1392; Sub 1636 1636 1476; Mul 1476 540 1636; Mul 1392 835 1133;
  Sub 1476 1476 1392; Mul 1392 415 1675; Mul 1144 215 1144; Add 1392 1392 1144; Sub 1097 1097 1392;
  Mul 1392 544 1097; Mul 1144 837 1694; Add 1392 1392 1144; Add 1476 1476 1392].
Definition casadi_f0_179 : list instruction := [
  Sub 1542 1542 1476; Add 1120 1120 1542; Mul 1120 1 1120; Mul 1542 632 1181; Add 1120 1120 1542;
  Add 1145 1145 1120; Mul 1174 678 1174; Mul 1120 684 1641; Add 1174 1174 1120; Mul 1551 673 1551;
  Mul 1120 827 1591; Add 1551 1551 1120; Mul 1251 799 1251; Mul 1120 660 1546; Add 1251 1251 1120;
  Add 1551 1551 1251; Add 1174 1174 1551; Mul 1225 602 1225; Mul 1551 830 1681; Add 1225 1225 1551;
  Mul 1355 670 1355; Mul 1551 829 1491; Add 1355 1355 1551; Mul 1313 671 1313; Mul 1551 656 1206;
  Add 1313 1313 1551; Sub 1355 1355 1313; Add 1225 1225 1355; Add 1174 1174 1225; Mul 1636 674 1636;
  Mul 1225 835 1114; Sub 1636 1636 1225; Mul 1097 680 1097; Mul 1225 837 1250; Add 1097 1097 1225;
  Mul 1520 216 1520; Mul 1225 403 1543; Sub 1520 1520 1225; Mul 1225 293 1675; Mul 1458 215 1458;
  Add 1225 1225 1458; Sub 1520 1520 1225; Mul 1520 676 1520; Mul 1225 839 1188; Add 1520 1520 1225;
  Sub 1097 1097 1520; Add 1636 1636 1097; Sub 1678 1678 1408; Add 1636 1636 1678; Add 1174 1174 1636;
  Mul 1174 2 1174; Mul 1636 834 1412; Add 1174 1174 1636; Add 1145 1145 1174; Mul 1174 647 1321;
  Mul 1677 716 1677; Add 1174 1174 1677; Mul 1677 695 1237; Mul 1435 718 1435; Add 1677 1677 1435;
  Sub 1174 1174 1677; Mul 1677 697 1263; Mul 1584 714 1584; Add 1677 1677 1584; Sub 1174 1174 1677;
  Add 1174 1174 1468; Mul 1174 3 1174; Mul 1468 836 1036; Add 1174 1174 1468; Add 1145 1145 1174;
  Mul 1174 802 1321; Mul 1468 716 1389; Add 1174 1174 1468; Mul 1468 813 1237; Mul 1677 718 1275;
  Add 1468 1468 1677; Sub 1174 1174 1468; Mul 1468 811 1263; Mul 1677 714 1254; Add 1468 1468 1677;
  Sub 1174 1174 1468; Add 1174 1174 1547; Mul 1174 4 1174; Mul 1547 702 1098; Add 1174 1174 1547;
  Add 1145 1145 1174; Mul 1174 788 1321; Mul 1547 716 1531; Add 1174 1174 1547; Mul 1547 822 1237;
  Mul 1468 718 1415; Add 1547 1547 1468; Sub 1174 1174 1547; Mul 1547 820 1263; Mul 1468 714 1134;
  Add 1547 1547 1468; Sub 1174 1174 1547; Add 1174 1174 1231; Mul 1174 5 1174; Mul 1231 810 1611;
  Add 1174 1174 1231; Add 1145 1145 1174; Add 1145 1145 1689; Mul 1689 769 1145; Sub 1374 1374 1689;
  Add 1349 1349 1374; Div 1374 1508 92; Mul 1689 1637 1086; Sub 1374 1374 1689; Mul 1689 815 1374;
  Mul 1174 640 1548; Mul 1486 725 1486; Add 1174 1174 1486; Mul 1486 662 1635; Mul 1193 731 1193;
  Add 1486 1486 1193; Add 1455 1455 1430; Add 1486 1486 1455; Add 1174 1174 1486; Mul 1486 580 1161;
  Mul 1590 310 1590; Add 1486 1486 1590; Mul 1590 59 1315; Mul 1146 327 1146; Add 1590 1590 1146;
  Add 1272 1272 1359; Add 1590 1590 1272; Add 1486 1486 1590; Sub 1174 1174 1486; Mul 1174 0 1174;
  Mul 1486 819 1081; Add 1174 1174 1486; Mul 1486 327 1444; Mul 1590 515 1315; Add 1486 1486 1590;
  Mul 1590 318 1287; Mul 1272 489 1469; Add 1590 1590 1272; Sub 1486 1486 1590; Sub 1486 1548 1486;
  Mul 1486 723 1486; Mul 1590 545 1486; Mul 1272 831 1686; Add 1590 1590 1272; Mul 1272 310 1287;
  Mul 1359 489 1161; Add 1272 1272 1359; Mul 1359 327 1245; Mul 1146 486 1315].
Definition casadi_f0_180 : list instruction := [
  Add 1359 1359 1146; Sub 1272 1272 1359; Sub 1272 1449 1272; Mul 1272 723 1272; Mul 1359 504 1272;
  Mul 1146 840 1667; Add 1359 1359 1146; Mul 1146 318 1245; Mul 1455 486 1469; Add 1146 1146 1455;
  Mul 1455 310 1444; Mul 1430 515 1161; Add 1455 1455 1430; Sub 1146 1146 1455; Sub 1146 1635 1146;
  Mul 1146 723 1146; Mul 1455 541 1146; Mul 1430 842 1209; Add 1455 1455 1430; Sub 1359 1359 1455;
  Add 1590 1590 1359; Mul 1359 842 1245; Mul 1455 486 1146; Add 1359 1359 1455; Mul 1455 831 1287;
  Mul 1430 489 1486; Add 1455 1455 1430; Sub 1359 1359 1455; Mul 1455 310 1387; Mul 1430 510 1161;
  Add 1455 1455 1430; Mul 1430 327 1368; Mul 1193 528 1315; Add 1430 1430 1193; Add 1455 1455 1430;
  Mul 1192 318 1192; Mul 1430 479 1469; Add 1192 1192 1430; Add 1455 1455 1192; Sub 1359 1359 1455;
  Mul 1455 508 1359; Mul 1192 841 1393; Add 1455 1455 1192; Mul 1192 831 1444; Mul 1430 515 1486;
  Add 1192 1192 1430; Mul 1245 840 1245; Mul 1430 486 1272; Add 1245 1245 1430; Sub 1192 1192 1245;
  Mul 1245 310 1340; Mul 1430 606 1161; Add 1245 1245 1430; Mul 1268 327 1268; Mul 1430 786 1315;
  Add 1268 1268 1430; Add 1245 1245 1268; Mul 1368 318 1368; Mul 1268 528 1469; Add 1368 1368 1268;
  Add 1245 1245 1368; Sub 1192 1192 1245; Mul 1245 536 1192; Mul 1368 844 1215; Add 1245 1245 1368;
  Sub 1455 1455 1245; Mul 1287 840 1287; Mul 1245 489 1272; Add 1287 1287 1245; Mul 1444 842 1444;
  Mul 1245 515 1146; Add 1444 1444 1245; Sub 1287 1287 1444; Mul 1625 310 1625; Mul 1444 705 1161;
  Add 1625 1625 1444; Mul 1340 327 1340; Mul 1444 606 1315; Add 1340 1340 1444; Add 1625 1625 1340;
  Mul 1387 318 1387; Mul 1340 510 1469; Add 1387 1387 1340; Add 1625 1625 1387; Sub 1287 1287 1625;
  Mul 1625 526 1287; Mul 1387 845 1164; Add 1625 1625 1387; Sub 1455 1455 1625; Add 1590 1590 1455;
  Add 1316 1316 1210; Mul 1210 800 1315; Mul 1218 327 1218; Add 1210 1210 1218; Mul 1218 643 1469;
  Mul 1221 318 1221; Add 1218 1218 1221; Add 1210 1210 1218; Add 1316 1316 1210; Mul 1210 540 1316;
  Mul 1218 843 1133; Sub 1210 1210 1218; Mul 1218 465 1161; Mul 1345 310 1345; Add 1218 1218 1345;
  Add 1511 1511 1170; Mul 1170 665 1469; Mul 1606 318 1606; Add 1170 1170 1606; Add 1511 1511 1170;
  Add 1218 1218 1511; Mul 1511 544 1218; Mul 1170 847 1694; Add 1511 1511 1170; Add 1210 1210 1511;
  Mul 1511 798 1548; Mul 1682 725 1682; Add 1511 1511 1682; Add 1341 1341 1471; Mul 1471 339 1449;
  Mul 1100 727 1100; Add 1471 1471 1100; Add 1341 1341 1471; Add 1511 1511 1341; Mul 1341 407 1161;
  Mul 1169 310 1169; Add 1341 1341 1169; Add 1609 1609 1655; Mul 1655 595 1469; Mul 1603 318 1603;
  Add 1655 1655 1603; Add 1609 1609 1655; Add 1341 1341 1609; Sub 1511 1511 1341; Mul 1511 216 1511;
  Mul 1341 848 1543; Sub 1511 1511 1341; Add 1394 1394 1464; Mul 1464 464 1635; Mul 1195 731 1195;
  Add 1464 1464 1195; Mul 1195 252 1449; Mul 1307 727 1307; Add 1195 1195 1307; Add 1464 1464 1195;
  Add 1394 1394 1464; Add 1107 1107 1669; Mul 1669 361 1315; Mul 1587 327 1587].
Definition casadi_f0_181 : list instruction := [
  Add 1669 1669 1587; Mul 1587 620 1469; Mul 1659 318 1659; Add 1587 1587 1659; Add 1669 1669 1587;
  Add 1107 1107 1669; Sub 1394 1394 1107; Mul 1394 215 1394; Mul 1107 850 1675; Add 1394 1394 1107;
  Sub 1107 1511 1394; Add 1210 1210 1107; Add 1590 1590 1210; Mul 1590 1 1590; Mul 1210 838 1181;
  Add 1590 1590 1210; Add 1174 1174 1590; Mul 1590 678 1486; Mul 1210 831 1641; Add 1590 1590 1210;
  Mul 1210 673 1146; Mul 1669 842 1591; Add 1210 1210 1669; Mul 1669 799 1272; Mul 1587 840 1546;
  Add 1669 1669 1587; Add 1210 1210 1669; Add 1590 1590 1210; Mul 1210 602 1287; Mul 1669 845 1681;
  Add 1210 1210 1669; Mul 1669 670 1192; Mul 1587 844 1491; Add 1669 1669 1587; Mul 1587 671 1359;
  Mul 1659 841 1206; Add 1587 1587 1659; Sub 1669 1669 1587; Add 1210 1210 1669; Add 1590 1590 1210;
  Mul 1210 785 1161; Mul 1493 310 1493; Add 1210 1210 1493; Mul 1493 306 1315; Mul 1474 327 1474;
  Add 1493 1493 1474; Add 1118 1118 1470; Add 1493 1493 1118; Add 1210 1210 1493; Mul 1493 676 1210;
  Mul 1118 853 1188; Add 1493 1493 1118; Mul 1118 680 1218; Mul 1470 847 1250; Add 1118 1118 1470;
  Sub 1493 1493 1118; Mul 1118 674 1316; Mul 1470 843 1114; Sub 1118 1118 1470; Sub 1493 1493 1118;
  Sub 1394 1394 1511; Add 1493 1493 1394; Add 1590 1590 1493; Mul 1590 2 1590; Mul 1493 846 1412;
  Add 1590 1590 1493; Add 1174 1174 1590; Mul 1486 717 1486; Mul 1590 831 1258; Add 1486 1486 1590;
  Mul 1272 787 1272; Mul 1590 840 1599; Add 1272 1272 1590; Mul 1146 713 1146; Mul 1590 842 1396;
  Add 1146 1146 1590; Sub 1272 1272 1146; Add 1486 1486 1272; Mul 1359 677 1359; Mul 1272 841 1535;
  Add 1359 1359 1272; Mul 1192 712 1192; Mul 1272 844 1285; Add 1192 1192 1272; Sub 1359 1359 1192;
  Mul 1287 706 1287; Mul 1192 845 1091; Add 1287 1287 1192; Sub 1359 1359 1287; Add 1486 1486 1359;
  Mul 1316 714 1316; Mul 1359 843 1263; Add 1316 1316 1359; Mul 1218 718 1218; Mul 1359 847 1237;
  Add 1218 1218 1359; Mul 1210 716 1210; Mul 1359 853 1321; Add 1210 1210 1359; Sub 1218 1218 1210;
  Add 1316 1316 1218; Add 1316 1316 1107; Add 1486 1486 1316; Mul 1486 3 1486; Mul 1316 854 1036;
  Add 1486 1486 1316; Add 1174 1174 1486; Mul 1486 811 1548; Mul 1254 725 1254; Add 1486 1486 1254;
  Mul 1254 813 1635; Mul 1275 731 1275; Add 1254 1254 1275; Mul 1275 802 1449; Mul 1389 727 1389;
  Add 1275 1275 1389; Add 1254 1254 1275; Add 1486 1486 1254; Mul 1254 807 1161; Mul 1384 310 1384;
  Add 1254 1254 1384; Mul 1384 690 1315; Mul 1478 327 1478; Add 1384 1384 1478; Mul 1478 720 1469;
  Mul 1433 318 1433; Add 1478 1478 1433; Add 1384 1384 1478; Add 1254 1254 1384; Sub 1486 1486 1254;
  Mul 1486 4 1486; Mul 1254 851 1098; Add 1486 1486 1254; Add 1174 1174 1486; Mul 1486 820 1548;
  Mul 1254 725 1134; Add 1486 1486 1254; Mul 1254 822 1635; Mul 1384 731 1415; Add 1254 1254 1384;
  Mul 1384 788 1449; Mul 1478 727 1531; Add 1384 1384 1478; Add 1254 1254 1384; Add 1486 1486 1254;
  Mul 1254 817 1161; Mul 1384 310 1179; Add 1254 1254 1384; Mul 1384 814 1315].
Definition casadi_f0_182 : list instruction := [
  Mul 1478 327 1510; Add 1384 1384 1478; Mul 1478 732 1469; Mul 1433 318 1566; Add 1478 1478 1433;
  Add 1384 1384 1478; Add 1254 1254 1384; Sub 1486 1486 1254; Mul 1486 5 1486; Mul 1254 852 1611;
  Add 1486 1486 1254; Add 1174 1174 1486; Sub 1567 1567 1174; Mul 1174 761 1567; Add 1689 1689 1174;
  Add 1349 1349 1689; Div 1689 1035 92; Mul 1174 1619 1086; Sub 1689 1689 1174; Mul 1174 833 1689;
  Mul 1486 645 1217; Mul 1506 736 1506; Add 1486 1486 1506; Mul 1506 666 1360; Mul 1330 741 1330;
  Add 1506 1506 1330; Add 1498 1498 1557; Add 1506 1506 1498; Add 1486 1486 1506; Mul 1506 593 1657;
  Mul 1352 358 1352; Add 1506 1506 1352; Mul 1352 36 1159; Mul 1131 372 1131; Add 1352 1352 1131;
  Add 1152 1152 1541; Add 1352 1352 1152; Add 1506 1506 1352; Sub 1486 1486 1506; Mul 1506 0 1486;
  Mul 1081 849 1081; Add 1506 1506 1081; Mul 1081 372 1411; Mul 1352 438 1159; Add 1081 1081 1352;
  Mul 1352 369 1171; Mul 1152 434 1372; Add 1352 1352 1152; Sub 1081 1081 1352; Sub 1081 1217 1081;
  Mul 1081 430 1081; Mul 1352 545 1081; Mul 1686 856 1686; Add 1352 1352 1686; Mul 1686 358 1171;
  Mul 1152 434 1657; Add 1686 1686 1152; Mul 1152 372 1375; Mul 1541 445 1159; Add 1152 1152 1541;
  Sub 1686 1686 1152; Sub 1686 1440 1686; Mul 1686 430 1686; Mul 1152 504 1686; Mul 1667 858 1667;
  Add 1152 1152 1667; Mul 1667 369 1375; Mul 1541 445 1372; Add 1667 1667 1541; Mul 1541 358 1411;
  Mul 1131 438 1657; Add 1541 1541 1131; Sub 1667 1667 1541; Sub 1667 1360 1667; Mul 1667 430 1667;
  Mul 1541 541 1667; Mul 1209 860 1209; Add 1541 1541 1209; Sub 1152 1152 1541; Add 1352 1352 1152;
  Mul 1152 860 1375; Mul 1541 445 1667; Add 1152 1152 1541; Mul 1541 856 1171; Mul 1209 434 1081;
  Add 1541 1541 1209; Sub 1152 1152 1541; Mul 1541 358 1403; Mul 1209 443 1657; Add 1541 1541 1209;
  Mul 1209 372 1484; Mul 1131 426 1159; Add 1209 1209 1131; Add 1541 1541 1209; Mul 1115 369 1115;
  Mul 1209 478 1372; Add 1115 1115 1209; Add 1541 1541 1115; Sub 1152 1152 1541; Mul 1541 508 1152;
  Mul 1393 859 1393; Add 1541 1541 1393; Mul 1393 856 1411; Mul 1115 438 1081; Add 1393 1393 1115;
  Mul 1375 858 1375; Mul 1115 445 1686; Add 1375 1375 1115; Sub 1393 1393 1375; Mul 1375 358 1378;
  Mul 1115 609 1657; Add 1375 1375 1115; Mul 1481 372 1481; Mul 1115 604 1159; Add 1481 1481 1115;
  Add 1375 1375 1481; Mul 1484 369 1484; Mul 1481 426 1372; Add 1484 1484 1481; Add 1375 1375 1484;
  Sub 1393 1393 1375; Mul 1375 536 1393; Mul 1215 862 1215; Add 1375 1375 1215; Sub 1541 1541 1375;
  Mul 1171 858 1171; Mul 1375 434 1686; Add 1171 1171 1375; Mul 1411 860 1411; Mul 1375 438 1667;
  Add 1411 1411 1375; Sub 1171 1171 1411; Mul 1411 13 1657; Mul 1497 358 1497; Sub 1411 1411 1497;
  Mul 1378 372 1378; Mul 1497 609 1159; Add 1378 1378 1497; Add 1411 1411 1378; Mul 1403 369 1403;
  Mul 1378 443 1372; Add 1403 1403 1378; Add 1411 1411 1403; Sub 1171 1171 1411; Mul 1411 526 1171;
  Mul 1164 863 1164; Add 1411 1411 1164; Sub 1541 1541 1411; Add 1352 1352 1541].
Definition casadi_f0_183 : list instruction := [
  Add 1489 1489 1227; Mul 1227 803 1159; Mul 1116 372 1116; Add 1227 1227 1116; Mul 1116 648 1372;
  Mul 1501 369 1501; Add 1116 1116 1501; Add 1227 1227 1116; Add 1489 1489 1227; Mul 1227 540 1489;
  Mul 1133 861 1133; Sub 1227 1227 1133; Mul 1133 394 1657; Mul 1579 358 1579; Add 1133 1133 1579;
  Add 1515 1515 1092; Mul 1092 669 1372; Mul 1600 369 1600; Add 1092 1092 1600; Add 1515 1515 1092;
  Add 1133 1133 1515; Mul 1515 544 1133; Mul 1694 865 1694; Add 1515 1515 1694; Add 1227 1227 1515;
  Mul 1515 801 1217; Mul 1421 736 1421; Add 1515 1515 1421; Add 1223 1223 1445; Mul 1445 355 1440;
  Mul 1418 738 1418; Add 1445 1445 1418; Add 1223 1223 1445; Add 1515 1515 1223; Mul 1223 359 1657;
  Mul 1311 358 1311; Add 1223 1223 1311; Add 1376 1376 1362; Mul 1362 608 1372; Mul 1128 369 1128;
  Add 1362 1362 1128; Add 1376 1376 1362; Add 1223 1223 1376; Sub 1515 1515 1223; Mul 1223 216 1515;
  Mul 1543 866 1543; Sub 1223 1223 1543; Add 1177 1177 1288; Mul 1288 457 1360; Mul 1244 741 1244;
  Add 1288 1288 1244; Mul 1244 234 1440; Mul 1672 738 1672; Add 1244 1244 1672; Add 1288 1288 1244;
  Add 1177 1177 1288; Add 1165 1165 1300; Mul 1300 352 1159; Mul 1597 372 1597; Add 1300 1300 1597;
  Mul 1597 622 1372; Mul 1121 369 1121; Add 1597 1597 1121; Add 1300 1300 1597; Add 1165 1165 1300;
  Sub 1177 1177 1165; Mul 1165 215 1177; Mul 1675 868 1675; Add 1165 1165 1675; Sub 1675 1223 1165;
  Add 1227 1227 1675; Add 1352 1352 1227; Mul 1352 1 1352; Mul 1181 857 1181; Add 1352 1352 1181;
  Add 1506 1506 1352; Mul 1352 678 1081; Mul 1641 856 1641; Add 1352 1352 1641; Mul 1641 673 1667;
  Mul 1591 860 1591; Add 1641 1641 1591; Mul 1591 799 1686; Mul 1546 858 1546; Add 1591 1591 1546;
  Add 1641 1641 1591; Add 1352 1352 1641; Mul 1641 602 1171; Mul 1681 863 1681; Add 1641 1641 1681;
  Mul 1681 670 1393; Mul 1491 862 1491; Add 1681 1681 1491; Mul 1491 671 1152; Mul 1206 859 1206;
  Add 1491 1491 1206; Sub 1681 1681 1491; Add 1641 1641 1681; Add 1352 1352 1641; Mul 1641 245 1657;
  Mul 1494 358 1494; Add 1641 1641 1494; Mul 1494 356 1159; Mul 1668 372 1668; Add 1494 1494 1668;
  Add 1698 1698 1367; Add 1494 1494 1698; Add 1641 1641 1494; Mul 1494 676 1641; Mul 1188 871 1188;
  Add 1494 1494 1188; Mul 1188 680 1133; Mul 1250 865 1250; Add 1188 1188 1250; Sub 1494 1494 1188;
  Mul 1188 674 1489; Mul 1114 861 1114; Sub 1188 1188 1114; Sub 1494 1494 1188; Sub 1165 1165 1223;
  Add 1494 1494 1165; Add 1352 1352 1494; Mul 1352 2 1352; Mul 1412 864 1412; Add 1352 1352 1412;
  Add 1506 1506 1352; Mul 1352 717 1081; Mul 1258 856 1258; Add 1352 1352 1258; Mul 1258 787 1686;
  Mul 1599 858 1599; Add 1258 1258 1599; Mul 1599 713 1667; Mul 1396 860 1396; Add 1599 1599 1396;
  Sub 1258 1258 1599; Add 1352 1352 1258; Mul 1258 677 1152; Mul 1535 859 1535; Add 1258 1258 1535;
  Mul 1535 712 1393; Mul 1285 862 1285; Add 1535 1535 1285; Sub 1258 1258 1535; Mul 1535 706 1171;
  Mul 1091 863 1091; Add 1535 1535 1091; Sub 1258 1258 1535; Add 1352 1352 1258].
Definition casadi_f0_184 : list instruction := [
  Mul 1258 714 1489; Mul 1263 861 1263; Add 1258 1258 1263; Mul 1263 718 1133; Mul 1237 865 1237;
  Add 1263 1263 1237; Mul 1237 716 1641; Mul 1321 871 1321; Add 1237 1237 1321; Sub 1263 1263 1237;
  Add 1258 1258 1263; Add 1258 1258 1675; Add 1352 1352 1258; Mul 1352 3 1352; Mul 1036 872 1036;
  Add 1352 1352 1036; Add 1506 1506 1352; Mul 1081 729 1081; Mul 1350 856 1350; Add 1081 1081 1350;
  Mul 1667 724 1667; Mul 1301 860 1301; Add 1667 1667 1301; Mul 1686 688 1686; Mul 1514 858 1514;
  Add 1686 1686 1514; Add 1667 1667 1686; Add 1081 1081 1667; Mul 1171 715 1171; Mul 1125 863 1125;
  Add 1171 1171 1125; Mul 1393 721 1393; Mul 1104 862 1104; Add 1393 1393 1104; Mul 1152 722 1152;
  Mul 1312 859 1312; Add 1152 1152 1312; Add 1393 1393 1152; Add 1171 1171 1393; Add 1081 1081 1171;
  Mul 1489 725 1489; Mul 1548 861 1548; Add 1489 1489 1548; Mul 1133 731 1133; Mul 1635 865 1635;
  Add 1133 1133 1635; Mul 1641 727 1641; Mul 1449 871 1449; Add 1641 1641 1449; Add 1133 1133 1641;
  Add 1489 1489 1133; Mul 1177 310 1177; Mul 1161 868 1161; Add 1177 1177 1161; Mul 1515 327 1515;
  Mul 1315 866 1315; Add 1515 1515 1315; Mul 1486 318 1486; Mul 1469 849 1469; Add 1486 1486 1469;
  Add 1515 1515 1486; Add 1177 1177 1515; Add 1489 1489 1177; Sub 1081 1081 1489; Mul 1081 4 1081;
  Mul 1098 869 1098; Add 1081 1081 1098; Add 1506 1506 1081; Mul 1217 820 1217; Mul 1134 736 1134;
  Add 1217 1217 1134; Mul 1360 822 1360; Mul 1415 741 1415; Add 1360 1360 1415; Mul 1440 788 1440;
  Mul 1531 738 1531; Add 1440 1440 1531; Add 1360 1360 1440; Add 1217 1217 1360; Mul 1657 817 1657;
  Mul 1179 358 1179; Add 1657 1657 1179; Mul 1159 814 1159; Mul 1510 372 1510; Add 1159 1159 1510;
  Mul 1372 732 1372; Mul 1566 369 1566; Add 1372 1372 1566; Add 1159 1159 1372; Add 1657 1657 1159;
  Sub 1217 1217 1657; Mul 1217 5 1217; Mul 1611 870 1611; Add 1217 1217 1611; Add 1506 1506 1217;
  Sub 1680 1680 1506; Mul 1506 754 1680; Add 1174 1174 1506; Add 1349 1349 1174; Mul 1174 210 1035;
  Mul 1506 200 1568; Add 1174 1174 1506; Mul 1385 19 1385; Mul 1506 196 1053; Sub 1385 1385 1506;
  Mul 1506 189 1453; Mul 1612 35 1612; Sub 1506 1506 1612; Sub 1385 1385 1506; Mul 1482 55 1482;
  Mul 1459 62 1459; Add 1482 1482 1459; Add 1385 1385 1482; Mul 1048 86 1048; Mul 1198 91 1198;
  Add 1048 1048 1198; Add 1048 1385 1048; Mul 1521 102 1521; Sub 1521 1048 1521; Mul 1198 777 1521;
  Mul 1482 209 1204; Add 1198 1198 1482; Add 1174 1174 1198; Mul 1198 778 1048; Mul 1482 867 1451;
  Add 1198 1198 1482; Add 1174 1174 1198; Mul 1198 769 1385; Mul 1482 855 1038; Add 1198 1198 1482;
  Add 1174 1174 1198; Mul 1198 761 1090; Mul 1482 201 1374; Add 1198 1198 1482; Sub 1174 1174 1198;
  Mul 1198 873 1689; Add 1174 1174 1198; Mul 1198 1006 1174; Mul 1482 210 1174; Mul 1459 756 1568;
  Add 1482 1482 1459; Sub 1035 1035 1482; Mul 1482 881 1035; Mul 1459 210 1240; Mul 1506 143 1568;
  Add 1459 1459 1506; Sub 1685 1685 1082; Sub 1692 1692 1639; Mul 1692 37 1692].
Definition casadi_f0_185 : list instruction := [
  Add 1685 1685 1692; Sub 1024 1024 1049; Mul 1024 80 1024; Add 1024 1685 1024; Sub 1148 1148 1676;
  Mul 1148 100 1148; Add 1148 1024 1148; Mul 1638 1064 1638; Mul 1691 1061 1691; Add 1638 1638 1691;
  Mul 1638 141 1638; Add 1148 1148 1638; Mul 1638 777 1148; Mul 1691 876 1204; Add 1638 1638 1691;
  Add 1459 1459 1638; Mul 1232 151 1232; Mul 1042 103 1042; Add 1232 1232 1042; Mul 1020 148 1020;
  Mul 1021 105 1021; Add 1020 1020 1021; Sub 1232 1232 1020; Sub 1232 1232 1024; Mul 1126 102 1126;
  Sub 1126 1232 1126; Mul 1024 778 1126; Mul 1020 153 1451; Add 1024 1024 1020; Sub 1459 1459 1024;
  Mul 1089 1057 1089; Mul 1690 1065 1690; Sub 1089 1089 1690; Mul 1089 156 1089; Add 1685 1685 1089;
  Mul 1083 86 1083; Mul 1077 91 1077; Sub 1083 1083 1077; Add 1083 1685 1083; Mul 1632 102 1632;
  Sub 1632 1083 1632; Mul 1077 769 1632; Mul 1089 171 1038; Add 1077 1077 1089; Add 1459 1459 1077;
  Mul 1453 180 1453; Mul 1037 35 1037; Add 1453 1453 1037; Mul 1136 19 1136; Mul 1053 182 1053;
  Sub 1136 1136 1053; Sub 1453 1453 1136; Mul 1186 55 1186; Add 1453 1453 1186; Mul 1211 86 1211;
  Mul 1101 91 1101; Add 1211 1211 1101; Add 1211 1453 1211; Mul 1560 102 1560; Sub 1560 1211 1560;
  Mul 1101 761 1560; Mul 1186 188 1374; Add 1101 1101 1186; Add 1459 1459 1101; Mul 1101 754 1521;
  Mul 1186 209 1689; Add 1101 1101 1186; Add 1459 1459 1101; Mul 1101 210 1459; Mul 1186 875 1568;
  Add 1101 1101 1186; Sub 1240 1240 1101; Div 1101 1240 65; Mul 1240 89 1240; Mul 1186 777 1459;
  Mul 1136 875 1204; Add 1186 1186 1136; Sub 1148 1148 1186; Mul 1186 58 1148; Add 1240 1240 1186;
  Mul 1186 778 1459; Mul 1136 875 1451; Add 1186 1186 1136; Add 1186 1126 1186; Mul 1136 45 1186;
  Add 1240 1240 1136; Mul 1136 769 1459; Mul 1053 875 1038; Add 1136 1136 1053; Sub 1136 1632 1136;
  Mul 1053 22 1136; Add 1240 1240 1053; Mul 1053 761 1459; Mul 1037 875 1374; Add 1053 1053 1037;
  Sub 1053 1560 1053; Mul 1037 879 1053; Add 1240 1240 1037; Mul 1037 754 1459; Mul 1077 875 1689;
  Add 1037 1037 1077; Sub 1037 1521 1037; Mul 1077 880 1037; Add 1240 1240 1077; Div 1240 1240 1045;
  Mul 1077 1078 1240; Sub 1101 1101 1077; Mul 1077 874 1101; Add 1482 1482 1077; Mul 1077 777 1174;
  Mul 1089 756 1204; Add 1077 1077 1089; Sub 1521 1521 1077; Mul 1077 884 1521; Div 1148 1148 65;
  Mul 1089 1029 1240; Sub 1148 1148 1089; Mul 1089 883 1148; Add 1077 1077 1089; Add 1482 1482 1077;
  Mul 1077 778 1174; Mul 1089 756 1451; Add 1077 1077 1089; Sub 1077 1077 1048; Mul 1089 886 1077;
  Div 1186 1186 65; Mul 1690 1063 1240; Sub 1186 1186 1690; Mul 1690 885 1186; Add 1089 1089 1690;
  Add 1482 1482 1089; Mul 1089 769 1174; Mul 1690 756 1038; Add 1089 1089 1690; Sub 1089 1385 1089;
  Mul 1690 888 1089; Div 1136 1136 65; Mul 1024 1040 1240; Sub 1136 1136 1024; Mul 1024 887 1136;
  Add 1690 1690 1024; Add 1482 1482 1690; Mul 1690 761 1174; Mul 1024 756 1374; Add 1690 1690 1024;
  Add 1690 1090 1690; Mul 1024 890 1690; Div 1053 1053 65; Mul 1020 1027 1240].
Definition casadi_f0_186 : list instruction := [
  Sub 1053 1053 1020; Mul 1020 889 1053; Add 1024 1024 1020; Sub 1482 1482 1024; Div 1037 1037 65;
  Mul 1024 1046 1240; Sub 1037 1037 1024; Mul 1024 891 1037; Mul 1174 754 1174; Mul 1020 756 1689;
  Add 1174 1174 1020; Mul 1020 892 1174; Sub 1024 1024 1020; Add 1482 1482 1024; Mul 1024 881 1482;
  Mul 1020 882 1101; Add 1024 1024 1020; Sub 1035 1035 1024; Mul 1024 884 1482; Mul 1020 882 1148;
  Add 1024 1024 1020; Sub 1521 1521 1024; Mul 1024 910 1521; Mul 1020 777 1126; Mul 1021 153 1204;
  Add 1020 1020 1021; Mul 1021 210 1621; Mul 1042 154 1568; Add 1021 1021 1042; Sub 1020 1020 1021;
  Mul 1021 778 1232; Mul 1042 106 1451; Add 1021 1021 1042; Add 1020 1020 1021; Mul 1021 769 1083;
  Mul 1042 877 1038; Add 1021 1021 1042; Sub 1020 1020 1021; Mul 1021 761 1211; Mul 1042 94 1374;
  Add 1021 1021 1042; Sub 1020 1020 1021; Mul 1021 754 1048; Mul 1042 867 1689; Add 1021 1021 1042;
  Sub 1020 1020 1021; Mul 1021 777 1020; Mul 1042 895 1204; Add 1021 1021 1042; Sub 1126 1126 1021;
  Mul 1021 884 1126; Mul 1042 896 1148; Add 1021 1021 1042; Mul 1042 210 1020; Mul 1638 895 1568;
  Add 1042 1042 1638; Add 1621 1621 1042; Mul 1042 881 1621; Mul 1638 898 1101; Add 1042 1042 1638;
  Sub 1021 1021 1042; Mul 1042 778 1020; Mul 1638 895 1451; Add 1042 1042 1638; Sub 1042 1042 1232;
  Mul 1232 886 1042; Mul 1638 899 1186; Add 1232 1232 1638; Add 1021 1021 1232; Mul 1232 769 1020;
  Mul 1638 895 1038; Add 1232 1232 1638; Add 1232 1083 1232; Mul 1638 888 1232; Mul 1691 900 1136;
  Add 1638 1638 1691; Sub 1021 1021 1638; Mul 1638 761 1020; Mul 1691 895 1374; Add 1638 1638 1691;
  Add 1638 1211 1638; Mul 1691 890 1638; Mul 1676 901 1053; Add 1691 1691 1676; Sub 1021 1021 1691;
  Mul 1691 754 1020; Mul 1676 895 1689; Add 1691 1691 1676; Add 1048 1048 1691; Mul 1691 892 1048;
  Mul 1676 902 1037; Add 1691 1691 1676; Sub 1021 1021 1691; Mul 1691 884 1021; Mul 1676 897 1148;
  Add 1691 1691 1676; Sub 1126 1126 1691; Div 1691 1126 905; Mul 1676 881 1021; Mul 1049 897 1101;
  Add 1676 1676 1049; Add 1621 1621 1676; Mul 1676 904 1621; Mul 1126 903 1126; Add 1676 1676 1126;
  Mul 1126 886 1021; Mul 1049 897 1186; Add 1126 1126 1049; Sub 1042 1042 1126; Mul 1126 906 1042;
  Add 1676 1676 1126; Mul 1126 888 1021; Mul 1049 897 1136; Add 1126 1126 1049; Add 1232 1232 1126;
  Mul 1126 907 1232; Add 1676 1676 1126; Mul 1126 890 1021; Mul 1049 897 1053; Add 1126 1126 1049;
  Add 1638 1638 1126; Mul 1126 908 1638; Add 1676 1676 1126; Mul 1126 892 1021; Mul 1049 897 1037;
  Add 1126 1126 1049; Add 1048 1048 1126; Mul 1126 909 1048; Add 1676 1676 1126; Div 1676 1676 1067;
  Mul 1126 1214 1676; Sub 1691 1691 1126; Mul 1126 894 1691; Add 1024 1024 1126; Mul 1126 912 1035;
  Div 1621 1621 905; Mul 1049 1614 1676; Sub 1621 1621 1049; Mul 1049 893 1621; Add 1126 1126 1049;
  Sub 1024 1024 1126; Mul 1126 886 1482; Mul 1049 882 1186; Add 1126 1126 1049; Sub 1077 1077 1126;
  Mul 1126 914 1077; Div 1042 1042 905; Mul 1049 1273 1676; Sub 1042 1042 1049].
Definition casadi_f0_187 : list instruction := [
  Mul 1049 913 1042; Add 1126 1126 1049; Add 1024 1024 1126; Mul 1126 888 1482; Mul 1049 882 1136;
  Add 1126 1126 1049; Sub 1089 1089 1126; Mul 1126 916 1089; Div 1232 1232 905; Mul 1049 1260 1676;
  Sub 1232 1232 1049; Mul 1049 915 1232; Add 1126 1126 1049; Sub 1024 1024 1126; Mul 1126 890 1482;
  Mul 1049 882 1053; Add 1126 1126 1049; Add 1690 1690 1126; Mul 1126 918 1690; Div 1638 1638 905;
  Mul 1049 1249 1676; Sub 1638 1638 1049; Mul 1049 917 1638; Add 1126 1126 1049; Add 1024 1024 1126;
  Div 1048 1048 905; Mul 1126 1569 1676; Sub 1048 1048 1126; Mul 1126 919 1048; Mul 1049 892 1482;
  Mul 1692 882 1037; Add 1049 1049 1692; Add 1174 1174 1049; Mul 1049 920 1174; Sub 1126 1126 1049;
  Sub 1024 1024 1126; Mul 1126 912 1024; Mul 1049 911 1621; Add 1126 1126 1049; Add 1035 1035 1126;
  Mul 1126 944 1035; Mul 1049 210 1028; Mul 1692 168 1568; Add 1049 1049 1692; Mul 1692 777 1632;
  Mul 1639 171 1204; Add 1692 1692 1639; Add 1049 1049 1692; Mul 1692 778 1083; Mul 1639 877 1451;
  Add 1692 1692 1639; Add 1049 1049 1692; Mul 1692 769 1685; Mul 1639 878 1038; Add 1692 1692 1639;
  Add 1049 1049 1692; Mul 1692 761 1453; Mul 1639 98 1374; Add 1692 1692 1639; Add 1049 1049 1692;
  Mul 1692 754 1385; Mul 1639 855 1689; Add 1692 1692 1639; Add 1049 1049 1692; Mul 1692 210 1049;
  Mul 1639 922 1568; Add 1692 1692 1639; Sub 1028 1028 1692; Mul 1692 881 1028; Mul 1639 923 1101;
  Add 1692 1692 1639; Mul 1639 777 1049; Mul 1082 922 1204; Add 1639 1639 1082; Sub 1632 1632 1639;
  Mul 1639 884 1632; Mul 1082 925 1148; Add 1639 1639 1082; Add 1692 1692 1639; Mul 1639 778 1049;
  Mul 1082 922 1451; Add 1639 1639 1082; Sub 1639 1639 1083; Mul 1083 886 1639; Mul 1082 926 1186;
  Add 1083 1083 1082; Add 1692 1692 1083; Mul 1083 769 1049; Mul 1082 922 1038; Add 1083 1083 1082;
  Sub 1685 1685 1083; Mul 1083 888 1685; Mul 1082 927 1136; Add 1083 1083 1082; Add 1692 1692 1083;
  Mul 1083 761 1049; Mul 1082 922 1374; Add 1083 1083 1082; Sub 1083 1453 1083; Mul 1082 890 1083;
  Mul 1506 928 1053; Add 1082 1082 1506; Add 1692 1692 1082; Mul 1082 754 1049; Mul 1506 922 1689;
  Add 1082 1082 1506; Sub 1385 1385 1082; Mul 1082 892 1385; Mul 1506 929 1037; Add 1082 1082 1506;
  Add 1692 1692 1082; Mul 1082 881 1692; Mul 1506 924 1101; Add 1082 1082 1506; Sub 1028 1028 1082;
  Mul 1082 884 1692; Mul 1506 924 1148; Add 1082 1082 1506; Sub 1632 1632 1082; Mul 1082 910 1632;
  Mul 1506 931 1691; Add 1082 1082 1506; Mul 1506 912 1028; Mul 1612 930 1621; Add 1506 1506 1612;
  Sub 1082 1082 1506; Mul 1506 886 1692; Mul 1612 924 1186; Add 1506 1506 1612; Sub 1639 1639 1506;
  Mul 1506 914 1639; Mul 1612 933 1042; Add 1506 1506 1612; Add 1082 1082 1506; Mul 1506 888 1692;
  Mul 1612 924 1136; Add 1506 1506 1612; Sub 1685 1685 1506; Mul 1506 916 1685; Mul 1612 934 1232;
  Add 1506 1506 1612; Sub 1082 1082 1506; Mul 1506 890 1692; Mul 1612 924 1053; Add 1506 1506 1612;
  Sub 1083 1083 1506; Mul 1506 918 1083; Mul 1612 935 1638; Add 1506 1506 1612].
Definition casadi_f0_188 : list instruction := [
  Sub 1082 1082 1506; Mul 1506 892 1692; Mul 1612 924 1037; Add 1506 1506 1612; Sub 1385 1385 1506;
  Mul 1506 920 1385; Mul 1612 936 1048; Add 1506 1506 1612; Sub 1082 1082 1506; Mul 1506 912 1082;
  Mul 1612 932 1621; Add 1506 1506 1612; Add 1028 1028 1506; Div 1506 1028 938; Mul 1028 937 1028;
  Mul 1612 910 1082; Mul 1217 932 1691; Add 1612 1612 1217; Sub 1632 1632 1612; Mul 1612 939 1632;
  Add 1028 1028 1612; Mul 1612 914 1082; Mul 1217 932 1042; Add 1612 1612 1217; Sub 1639 1639 1612;
  Mul 1612 940 1639; Add 1028 1028 1612; Mul 1612 916 1082; Mul 1217 932 1232; Add 1612 1612 1217;
  Add 1685 1685 1612; Mul 1612 941 1685; Add 1028 1028 1612; Mul 1612 918 1082; Mul 1217 932 1638;
  Add 1612 1612 1217; Add 1083 1083 1612; Mul 1612 942 1083; Add 1028 1028 1612; Mul 1612 920 1082;
  Mul 1217 932 1048; Add 1612 1612 1217; Add 1385 1385 1612; Mul 1612 943 1385; Add 1028 1028 1612;
  Div 1028 1028 1615; Mul 1612 1446 1028; Sub 1506 1506 1612; Mul 1612 921 1506; Add 1126 1126 1612;
  Mul 1612 910 1024; Mul 1217 911 1691; Add 1612 1612 1217; Sub 1521 1521 1612; Mul 1612 947 1521;
  Div 1632 1632 938; Mul 1217 1184 1028; Sub 1632 1632 1217; Mul 1217 946 1632; Add 1612 1612 1217;
  Add 1126 1126 1612; Mul 1612 914 1024; Mul 1217 911 1042; Add 1612 1612 1217; Sub 1077 1077 1612;
  Mul 1612 949 1077; Div 1639 1639 938; Mul 1217 1160 1028; Sub 1639 1639 1217; Mul 1217 948 1639;
  Add 1612 1612 1217; Add 1126 1126 1612; Mul 1612 916 1024; Mul 1217 911 1232; Add 1612 1612 1217;
  Add 1089 1089 1612; Mul 1612 951 1089; Div 1685 1685 938; Mul 1217 1328 1028; Sub 1685 1685 1217;
  Mul 1217 950 1685; Add 1612 1612 1217; Add 1126 1126 1612; Mul 1612 918 1024; Mul 1217 911 1638;
  Add 1612 1612 1217; Sub 1612 1612 1690; Mul 1690 953 1612; Div 1083 1083 938; Mul 1217 1155 1028;
  Sub 1083 1083 1217; Mul 1217 952 1083; Add 1690 1690 1217; Add 1126 1126 1690; Mul 1690 920 1024;
  Mul 1217 911 1048; Add 1690 1690 1217; Sub 1690 1690 1174; Mul 1174 955 1690; Div 1385 1385 938;
  Mul 1217 1220 1028; Sub 1385 1385 1217; Mul 1217 954 1385; Add 1174 1174 1217; Add 1126 1126 1174;
  Mul 1174 944 1126; Mul 1217 945 1506; Add 1174 1174 1217; Sub 1035 1035 1174; Mul 1174 986 1035;
  Mul 1217 210 1508; Mul 1611 175 1568; Add 1217 1217 1611; Mul 1611 777 1560; Mul 1657 188 1204;
  Add 1611 1611 1657; Add 1217 1217 1611; Mul 1611 778 1211; Mul 1657 94 1451; Add 1611 1611 1657;
  Add 1217 1217 1611; Mul 1611 769 1453; Mul 1657 98 1038; Add 1611 1611 1657; Add 1217 1217 1611;
  Mul 1611 761 1076; Mul 1657 172 1374; Add 1611 1611 1657; Sub 1217 1217 1611; Mul 1611 754 1090;
  Mul 1657 201 1689; Add 1611 1611 1657; Sub 1217 1217 1611; Mul 1611 210 1217; Mul 1568 957 1568;
  Add 1611 1611 1568; Sub 1508 1508 1611; Mul 1611 881 1508; Mul 1568 958 1101; Add 1611 1611 1568;
  Mul 1568 777 1217; Mul 1204 957 1204; Add 1568 1568 1204; Sub 1560 1560 1568; Mul 1568 884 1560;
  Mul 1204 960 1148; Add 1568 1568 1204; Add 1611 1611 1568; Mul 1568 778 1217].
Definition casadi_f0_189 : list instruction := [
  Mul 1451 957 1451; Add 1568 1568 1451; Sub 1568 1568 1211; Mul 1211 886 1568; Mul 1451 961 1186;
  Add 1211 1211 1451; Add 1611 1611 1211; Mul 1211 769 1217; Mul 1038 957 1038; Add 1211 1211 1038;
  Sub 1453 1453 1211; Mul 1211 888 1453; Mul 1038 962 1136; Add 1211 1211 1038; Add 1611 1611 1211;
  Mul 1211 761 1217; Mul 1374 957 1374; Add 1211 1211 1374; Add 1076 1076 1211; Mul 1211 890 1076;
  Mul 1374 963 1053; Add 1211 1211 1374; Sub 1611 1611 1211; Mul 1211 754 1217; Mul 1689 957 1689;
  Add 1211 1211 1689; Add 1090 1090 1211; Mul 1211 892 1090; Mul 1689 964 1037; Add 1211 1211 1689;
  Sub 1611 1611 1211; Mul 1211 881 1611; Mul 1689 959 1101; Add 1211 1211 1689; Sub 1508 1508 1211;
  Mul 1211 884 1611; Mul 1689 959 1148; Add 1211 1211 1689; Sub 1560 1560 1211; Mul 1211 910 1560;
  Mul 1689 966 1691; Add 1211 1211 1689; Mul 1689 912 1508; Mul 1374 965 1621; Add 1689 1689 1374;
  Sub 1211 1211 1689; Mul 1689 886 1611; Mul 1374 959 1186; Add 1689 1689 1374; Sub 1568 1568 1689;
  Mul 1689 914 1568; Mul 1374 968 1042; Add 1689 1689 1374; Add 1211 1211 1689; Mul 1689 888 1611;
  Mul 1374 959 1136; Add 1689 1689 1374; Sub 1453 1453 1689; Mul 1689 916 1453; Mul 1374 969 1232;
  Add 1689 1689 1374; Sub 1211 1211 1689; Mul 1689 890 1611; Mul 1374 959 1053; Add 1689 1689 1374;
  Add 1076 1076 1689; Mul 1689 918 1076; Mul 1374 970 1638; Add 1689 1689 1374; Add 1211 1211 1689;
  Mul 1689 892 1611; Mul 1374 959 1037; Add 1689 1689 1374; Add 1090 1090 1689; Mul 1689 920 1090;
  Mul 1374 971 1048; Add 1689 1689 1374; Add 1211 1211 1689; Mul 1689 912 1211; Mul 1374 967 1621;
  Add 1689 1689 1374; Add 1508 1508 1689; Mul 1689 944 1508; Mul 1374 972 1506; Add 1689 1689 1374;
  Mul 1374 910 1211; Mul 1038 967 1691; Add 1374 1374 1038; Sub 1560 1560 1374; Mul 1374 947 1560;
  Mul 1038 974 1632; Add 1374 1374 1038; Add 1689 1689 1374; Mul 1374 914 1211; Mul 1038 967 1042;
  Add 1374 1374 1038; Sub 1568 1568 1374; Mul 1374 949 1568; Mul 1038 975 1639; Add 1374 1374 1038;
  Add 1689 1689 1374; Mul 1374 916 1211; Mul 1038 967 1232; Add 1374 1374 1038; Add 1453 1453 1374;
  Mul 1374 951 1453; Mul 1038 976 1685; Add 1374 1374 1038; Add 1689 1689 1374; Mul 1374 918 1211;
  Mul 1038 967 1638; Add 1374 1374 1038; Sub 1374 1374 1076; Mul 1076 953 1374; Mul 1038 977 1083;
  Add 1076 1076 1038; Add 1689 1689 1076; Mul 1076 920 1211; Mul 1038 967 1048; Add 1076 1076 1038;
  Sub 1076 1076 1090; Mul 1090 955 1076; Mul 1038 978 1385; Add 1090 1090 1038; Add 1689 1689 1090;
  Mul 1090 944 1689; Mul 1038 973 1506; Add 1090 1090 1038; Sub 1508 1508 1090; Div 1090 1508 980;
  Mul 1508 979 1508; Mul 1038 947 1689; Mul 1451 973 1632; Add 1038 1038 1451; Sub 1560 1560 1038;
  Mul 1038 981 1560; Add 1508 1508 1038; Mul 1038 949 1689; Mul 1451 973 1639; Add 1038 1038 1451;
  Sub 1568 1568 1038; Mul 1038 982 1568; Add 1508 1508 1038; Mul 1038 951 1689; Mul 1451 973 1685;
  Add 1038 1038 1451; Sub 1453 1453 1038; Mul 1038 983 1453; Add 1508 1508 1038].
Definition casadi_f0_190 : list instruction := [
  Mul 1038 953 1689; Mul 1451 973 1083; Add 1038 1038 1451; Sub 1374 1374 1038; Mul 1038 984 1374;
  Add 1508 1508 1038; Mul 1038 955 1689; Mul 1451 973 1385; Add 1038 1038 1451; Sub 1076 1076 1038;
  Mul 1038 985 1076; Add 1508 1508 1038; Div 1508 1508 1630; Mul 1038 1629 1508; Sub 1090 1090 1038;
  Mul 1038 956 1090; Add 1174 1174 1038; Mul 1038 947 1126; Mul 1451 945 1632; Add 1038 1038 1451;
  Sub 1521 1521 1038; Mul 1038 989 1521; Div 1560 1560 980; Mul 1451 1262 1508; Sub 1560 1560 1451;
  Mul 1451 988 1560; Add 1038 1038 1451; Add 1174 1174 1038; Mul 1038 949 1126; Mul 1451 945 1639;
  Add 1038 1038 1451; Sub 1077 1077 1038; Mul 1038 991 1077; Div 1568 1568 980; Mul 1451 1306 1508;
  Sub 1568 1568 1451; Mul 1451 990 1568; Add 1038 1038 1451; Add 1174 1174 1038; Mul 1038 951 1126;
  Mul 1451 945 1685; Add 1038 1038 1451; Sub 1089 1089 1038; Mul 1038 993 1089; Div 1453 1453 980;
  Mul 1451 1626 1508; Sub 1453 1453 1451; Mul 1451 992 1453; Add 1038 1038 1451; Add 1174 1174 1038;
  Mul 1038 953 1126; Mul 1451 945 1083; Add 1038 1038 1451; Sub 1612 1612 1038; Mul 1038 995 1612;
  Div 1374 1374 980; Mul 1451 1530 1508; Sub 1374 1374 1451; Mul 1451 994 1374; Add 1038 1038 1451;
  Add 1174 1174 1038; Mul 1038 955 1126; Mul 1451 945 1385; Add 1038 1038 1451; Sub 1690 1690 1038;
  Mul 1038 997 1690; Div 1076 1076 980; Mul 1451 1472 1508; Sub 1076 1076 1451; Mul 1451 996 1076;
  Add 1038 1038 1451; Add 1174 1174 1038; Mul 1038 986 1174; Mul 1451 987 1090; Add 1038 1038 1451;
  Sub 1035 1035 1038; Div 1038 1035 999; Mul 1035 998 1035; Mul 1451 989 1174; Mul 1204 987 1560;
  Add 1451 1451 1204; Sub 1521 1521 1451; Mul 1451 1000 1521; Add 1035 1035 1451; Mul 1451 991 1174;
  Mul 1204 987 1568; Add 1451 1451 1204; Sub 1077 1077 1451; Mul 1451 1001 1077; Add 1035 1035 1451;
  Mul 1451 993 1174; Mul 1204 987 1453; Add 1451 1451 1204; Sub 1089 1089 1451; Mul 1451 1002 1089;
  Add 1035 1035 1451; Mul 1451 995 1174; Mul 1204 987 1374; Add 1451 1451 1204; Sub 1612 1612 1451;
  Mul 1451 1003 1612; Add 1035 1035 1451; Mul 1451 997 1174; Mul 1204 987 1076; Add 1451 1451 1204;
  Sub 1690 1690 1451; Mul 1451 1004 1690; Add 1035 1035 1451; Div 1035 1035 1095; Mul 1451 1596 1035;
  Sub 1038 1038 1451; Mul 1038 211 1038; Mul 1451 1005 1290; Sub 1038 1038 1451; Div 1521 1521 999;
  Mul 1451 1331 1035; Sub 1521 1521 1451; Mul 1521 779 1521; Mul 1451 1007 1157; Sub 1521 1521 1451;
  Add 1038 1038 1521; Div 1077 1077 999; Mul 1521 1080 1035; Sub 1077 1077 1521; Mul 1077 767 1077;
  Mul 1521 1008 1683; Add 1077 1077 1521; Add 1038 1038 1077; Div 1089 1089 999; Mul 1077 1056 1035;
  Sub 1089 1089 1077; Mul 1089 775 1089; Mul 1077 1009 1145; Sub 1089 1089 1077; Add 1038 1038 1089;
  Div 1612 1612 999; Mul 1089 1068 1035; Sub 1612 1612 1089; Mul 1612 815 1612; Mul 1089 1010 1567;
  Add 1612 1612 1089; Add 1038 1038 1612; Div 1690 1690 999; Mul 1612 1178 1035; Sub 1690 1690 1612;
  Mul 1690 833 1690; Mul 1612 1011 1680; Add 1690 1690 1612; Add 1038 1038 1690].
Definition casadi_f0_191 : list instruction := [
  Div 1038 1038 999; Mul 1035 1033 1035; Sub 1038 1038 1035; Mul 1035 756 1038; Add 1198 1198 1035;
  Sub 1349 1349 1198; Mul 1217 1012 1217; Mul 1090 211 1090; Mul 1198 986 1290; Sub 1090 1090 1198;
  Mul 1560 779 1560; Mul 1198 989 1157; Sub 1560 1560 1198; Add 1090 1090 1560; Mul 1568 767 1568;
  Mul 1560 991 1683; Add 1568 1568 1560; Add 1090 1090 1568; Mul 1453 775 1453; Mul 1568 993 1145;
  Sub 1453 1453 1568; Add 1090 1090 1453; Mul 1374 815 1374; Mul 1453 995 1567; Add 1374 1374 1453;
  Add 1090 1090 1374; Mul 1076 833 1076; Mul 1374 997 1680; Add 1076 1076 1374; Add 1090 1090 1076;
  Mul 1174 1006 1174; Mul 1076 987 1038; Add 1174 1174 1076; Sub 1090 1090 1174; Div 1090 1090 980;
  Mul 1508 1534 1508; Sub 1090 1090 1508; Mul 1508 957 1090; Add 1217 1217 1508; Sub 1349 1349 1217;
  Mul 1049 1013 1049; Mul 1506 211 1506; Mul 1217 944 1290; Sub 1506 1506 1217; Mul 1632 779 1632;
  Mul 1217 947 1157; Sub 1632 1632 1217; Add 1506 1506 1632; Mul 1639 767 1639; Mul 1632 949 1683;
  Add 1639 1639 1632; Add 1506 1506 1639; Mul 1685 775 1685; Mul 1639 951 1145; Sub 1685 1685 1639;
  Add 1506 1506 1685; Mul 1083 815 1083; Mul 1685 953 1567; Add 1083 1083 1685; Add 1506 1506 1083;
  Mul 1385 833 1385; Mul 1083 955 1680; Add 1385 1385 1083; Add 1506 1506 1385; Mul 1126 1006 1126;
  Mul 1385 945 1038; Add 1126 1126 1385; Sub 1506 1506 1126; Mul 1689 1012 1689; Mul 1126 973 1090;
  Add 1689 1689 1126; Sub 1506 1506 1689; Div 1506 1506 938; Mul 1028 1397 1028; Sub 1506 1506 1028;
  Mul 1028 922 1506; Add 1049 1049 1028; Sub 1349 1349 1049; Mul 1020 1014 1020; Mul 1691 779 1691;
  Mul 1049 910 1157; Sub 1691 1691 1049; Mul 1621 211 1621; Mul 1049 912 1290; Sub 1621 1621 1049;
  Sub 1691 1691 1621; Mul 1042 767 1042; Mul 1621 914 1683; Add 1042 1042 1621; Add 1691 1691 1042;
  Mul 1232 775 1232; Mul 1042 916 1145; Sub 1232 1232 1042; Sub 1691 1691 1232; Mul 1638 815 1638;
  Mul 1232 918 1567; Add 1638 1638 1232; Sub 1691 1691 1638; Mul 1048 833 1048; Mul 1638 920 1680;
  Add 1048 1048 1638; Sub 1691 1691 1048; Mul 1024 1006 1024; Mul 1048 911 1038; Add 1024 1024 1048;
  Sub 1691 1691 1024; Mul 1211 1012 1211; Mul 1024 967 1090; Add 1211 1211 1024; Sub 1691 1691 1211;
  Mul 1082 1013 1082; Mul 1211 932 1506; Add 1082 1082 1211; Sub 1691 1691 1082; Div 1691 1691 905;
  Mul 1676 1553 1676; Sub 1691 1691 1676; Mul 1676 895 1691; Add 1020 1020 1676; Sub 1349 1349 1020;
  Mul 1459 1015 1459; Mul 1101 211 1101; Mul 1290 881 1290; Sub 1101 1101 1290; Mul 1148 779 1148;
  Mul 1157 884 1157; Sub 1148 1148 1157; Add 1101 1101 1148; Mul 1186 767 1186; Mul 1683 886 1683;
  Add 1186 1186 1683; Add 1101 1101 1186; Mul 1136 775 1136; Mul 1145 888 1145; Sub 1136 1136 1145;
  Add 1101 1101 1136; Mul 1053 815 1053; Mul 1567 890 1567; Add 1053 1053 1567; Add 1101 1101 1053;
  Mul 1037 833 1037; Mul 1680 892 1680; Add 1037 1037 1680; Add 1101 1101 1037; Mul 1482 1006 1482;
  Mul 1037 882 1038; Add 1482 1482 1037; Sub 1101 1101 1482; Mul 1611 1012 1611].
Definition casadi_f0_192 : list instruction := [
  Mul 1482 959 1090; Add 1611 1611 1482; Sub 1101 1101 1611; Mul 1692 1013 1692; Mul 1611 924 1506;
  Add 1692 1692 1611; Sub 1101 1101 1692; Mul 1021 1014 1021; Mul 1692 897 1691; Add 1021 1021 1692;
  Sub 1101 1101 1021; Div 1101 1101 65; Mul 1240 1623 1240; Sub 1101 1101 1240; Mul 1240 875 1101;
  Add 1459 1459 1240; Sub 1349 1349 1459; Div 1349 1349 92; Mul 1086 759 1086; Sub 1349 1349 1086;
  Out 1 30 1349; Out 1 31 1101; Out 1 32 1691; Out 1 33 1506; Out 1 34 1090; Out 1 35 1038; Arg 1038 1 42;
  Out 1 36 1038; Arg 1090 1 43; Out 1 37 1090; Arg 1506 1 44; Out 1 38 1506; Arg 1691 1 45; Out 1 39 1691;
  Arg 1101 1 46; Out 1 40 1101; Arg 1349 1 47; Out 1 41 1349; Arg 1086 1 38; Mul 1459 8 1086; Mul 1240 10 1459;
  Arg 1021 1 41; Mul 1692 16 1021; Mul 1611 21 1692; Mul 1021 15 1021; Mul 1482 18 1021; Mul 1037 14 1692;
  Add 1482 1482 1037; Mul 1037 15 1482; Sub 1611 1611 1037; Mul 1037 18 1692; Mul 1680 14 1021;
  Sub 1037 1037 1680; Mul 1037 16 1037; Mul 1680 17 1021; Sub 1037 1037 1680; Sub 1680 1611 1037;
  Mul 1053 28 1021; Mul 1567 26 1692; Add 1053 1053 1567; Mul 1567 1031 1053; Mul 1136 28 1692;
  Mul 1145 26 1021; Sub 1136 1136 1145; Mul 1145 29 1136; Sub 1186 1567 1145; Mul 1186 20 1186;
  Add 1680 1680 1186; Mul 1145 20 1145; Add 1611 1611 1145; Add 1680 1680 1611; Mul 1567 20 1567;
  Add 1037 1037 1567; Add 1037 1037 1611; Add 1567 1680 1037; Mul 1037 19 1037; Arg 1145 1 40; Mul 1186 35 1145;
  Mul 1683 30 1186; Sub 1037 1037 1683; Mul 1145 19 1145; Mul 1683 41 1145; Mul 1148 42 1692; Mul 1157 40 1021;
  Sub 1148 1148 1157; Mul 1157 43 1692; Sub 1148 1148 1157; Mul 1157 44 1136; Add 1148 1148 1157;
  Mul 1157 35 1148; Add 1683 1683 1157; Sub 1037 1037 1683; Mul 1683 19 1037; Mul 1157 38 1186;
  Sub 1683 1683 1157; Mul 1148 19 1148; Mul 1157 41 1186; Sub 1148 1148 1157; Mul 1157 12 1145;
  Mul 1680 35 1680; Add 1157 1157 1680; Sub 1148 1148 1157; Mul 1157 35 1148; Mul 1680 46 1145;
  Add 1157 1157 1680; Sub 1683 1683 1157; Sub 1567 1567 1683; Sub 1567 1567 1611; Mul 1157 50 1053;
  Mul 1680 1039 1157; Mul 1290 50 1136; Mul 1020 19 1290; Mul 1676 49 1186; Sub 1020 1020 1676;
  Mul 1676 51 1145; Sub 1020 1020 1676; Mul 1676 1041 1020; Sub 1082 1680 1676; Mul 1082 37 1082;
  Add 1567 1567 1082; Mul 1082 49 1145; Mul 1211 35 1290; Add 1082 1082 1211; Mul 1211 51 1186;
  Sub 1082 1082 1211; Mul 1211 64 1082; Add 1676 1211 1676; Mul 1676 37 1676; Add 1676 1611 1676;
  Add 1567 1567 1676; Mul 1024 43 1021; Mul 1048 42 1021; Mul 1638 40 1692; Add 1048 1048 1638;
  Sub 1024 1024 1048; Mul 1048 44 1053; Sub 1024 1024 1048; Mul 1048 67 1024; Mul 1638 19 1048;
  Mul 1232 71 1186; Sub 1638 1638 1232; Mul 1232 75 1145; Mul 1482 16 1482; Mul 1042 21 1021;
  Add 1482 1482 1042; Mul 1053 74 1053; Mul 1136 20 1136; Mul 1136 34 1136; Sub 1053 1053 1136].
Definition casadi_f0_193 : list instruction := [
  Add 1482 1482 1053; Add 1053 1482 1482; Mul 1136 35 1053; Sub 1232 1232 1136; Add 1638 1638 1232;
  Mul 1232 73 1145; Mul 1136 35 1482; Sub 1232 1232 1136; Mul 1136 19 1024; Mul 1042 70 1186;
  Sub 1136 1136 1042; Add 1232 1232 1136; Sub 1638 1638 1232; Mul 1232 76 1157; Mul 1136 37 1082;
  Mul 1042 57 1136; Sub 1232 1232 1042; Sub 1638 1638 1232; Mul 1232 67 1638; Mul 1232 66 1232; Arg 1042 1 39;
  Mul 1621 53 1042; Mul 1049 77 1621; Sub 1232 1232 1049; Mul 1042 66 1042; Mul 1049 11 1042; Mul 1028 53 1567;
  Add 1049 1049 1028; Sub 1232 1232 1049; Mul 1049 53 1232; Mul 1028 78 1042; Add 1049 1049 1028;
  Add 1567 1567 1049; Sub 1567 1567 1676; Mul 1028 87 1621; Mul 1689 83 1157; Mul 1126 66 1689;
  Add 1028 1028 1126; Mul 1126 88 1042; Mul 1082 83 1082; Mul 1385 53 1082; Add 1126 1126 1385;
  Add 1028 1028 1126; Mul 1126 1054 1028; Mul 1385 83 1020; Mul 1083 1058 1385; Sub 1685 1126 1083;
  Mul 1685 80 1685; Add 1567 1567 1685; Add 1676 1676 1049; Mul 1049 66 1082; Mul 1685 88 1621;
  Sub 1049 1049 1685; Mul 1685 87 1042; Mul 1639 53 1689; Sub 1685 1685 1639; Add 1049 1049 1685;
  Mul 1685 93 1049; Add 1083 1685 1083; Mul 1083 80 1083; Add 1676 1676 1083; Add 1567 1567 1676;
  Mul 1083 9 1567; Add 1240 1240 1083; Mul 1232 66 1232; Mul 1083 78 1621; Sub 1232 1232 1083;
  Sub 1232 1232 1638; Mul 1638 72 1028; Mul 1083 80 1049; Mul 1639 63 1083; Sub 1638 1638 1639;
  Sub 1232 1232 1638; Mul 1638 67 1232; Mul 1638 8 1638; Mul 1086 9 1086; Mul 1639 97 1086; Sub 1638 1638 1639;
  Add 1240 1240 1638; Mul 1638 9 1240; Mul 1639 84 1459; Add 1638 1638 1639; Sub 1639 1638 1676;
  Mul 1049 104 1049; Mul 1632 8 1049; Mul 1217 103 1086; Sub 1632 1632 1217; Mul 1217 105 1459;
  Mul 1508 104 1028; Mul 1174 9 1508; Sub 1217 1217 1174; Sub 1632 1632 1217; Mul 1217 33 1632;
  Mul 1174 104 1385; Mul 1076 1066 1174; Add 1374 1217 1076; Mul 1374 100 1374; Sub 1639 1639 1374;
  Mul 1240 8 1240; Mul 1374 84 1086; Sub 1240 1240 1374; Sub 1240 1240 1232; Mul 1232 103 1459; Mul 1374 9 1049;
  Add 1232 1232 1374; Mul 1374 105 1086; Mul 1453 8 1508; Add 1374 1374 1453; Sub 1232 1232 1374;
  Mul 1374 96 1232; Mul 1453 100 1632; Mul 1568 117 1453; Sub 1374 1374 1568; Add 1240 1240 1374;
  Mul 1240 67 1240; Mul 1240 114 1240; Arg 1374 1 37; Mul 1568 113 1374; Mul 1560 116 1568; Sub 1240 1240 1560;
  Mul 1374 114 1374; Mul 1560 119 1374; Sub 1567 1567 1638; Sub 1567 1567 1676; Mul 1676 1044 1232;
  Sub 1076 1676 1076; Mul 1076 100 1076; Add 1567 1567 1076; Sub 1567 1567 1639; Mul 1567 113 1567;
  Add 1560 1560 1567; Sub 1240 1240 1560; Mul 1240 113 1240; Mul 1560 118 1374; Add 1240 1240 1560;
  Sub 1639 1639 1240; Mul 1632 120 1632; Mul 1240 114 1632; Mul 1560 60 1568; Sub 1240 1240 1560;
  Mul 1560 121 1374; Mul 1567 120 1232; Mul 1076 113 1567; Add 1560 1560 1076; Add 1240 1240 1560;
  Mul 1560 112 1240; Mul 1076 120 1174; Mul 1638 123 1076; Add 1560 1560 1638].
Definition casadi_f0_194 : list instruction := [
  Mul 1560 99 1560; Sub 1639 1639 1560; Mul 1240 125 1240; Mul 1240 110 1240; Mul 1560 125 1076;
  Mul 1560 126 1560; Add 1240 1240 1560; Mul 1240 122 1240; Add 1639 1639 1240; Div 1240 1639 92;
  Mul 1639 6 1639; Mul 1560 130 1459; Mul 1148 19 1148; Mul 1638 46 1186; Sub 1148 1148 1638; Mul 1037 35 1037;
  Mul 1638 38 1145; Add 1037 1037 1638; Add 1148 1148 1037; Mul 1136 52 1136; Mul 1037 76 1020;
  Add 1136 1136 1037; Add 1148 1148 1136; Mul 1136 66 1148; Mul 1037 129 1621; Sub 1136 1136 1037;
  Mul 1037 132 1042; Mul 1638 70 1145; Mul 1198 35 1024; Add 1638 1638 1198; Mul 1198 73 1186; Mul 1035 19 1482;
  Add 1198 1198 1035; Add 1638 1638 1198; Mul 1053 19 1053; Mul 1198 75 1186; Add 1053 1053 1198;
  Mul 1048 35 1048; Mul 1198 71 1145; Add 1048 1048 1198; Add 1053 1053 1048; Sub 1638 1638 1053;
  Mul 1053 133 1157; Mul 1020 37 1020; Mul 1020 57 1020; Sub 1053 1053 1020; Sub 1638 1638 1053;
  Mul 1053 53 1638; Add 1037 1037 1053; Add 1136 1136 1037; Mul 1083 27 1083; Mul 1037 72 1385;
  Add 1083 1083 1037; Add 1136 1136 1083; Mul 1083 9 1136; Add 1560 1560 1083; Add 1083 1638 1638;
  Mul 1083 66 1083; Mul 1037 136 1621; Sub 1083 1083 1037; Mul 1037 129 1042; Mul 1053 53 1148;
  Add 1037 1037 1053; Sub 1083 1083 1037; Mul 1037 66 1638; Mul 1053 132 1621; Sub 1037 1037 1053;
  Sub 1083 1083 1037; Mul 1028 138 1028; Mul 1037 80 1385; Mul 1037 63 1037; Sub 1028 1028 1037;
  Sub 1083 1083 1028; Add 1028 1083 1083; Mul 1028 8 1028; Mul 1037 139 1086; Sub 1028 1028 1037;
  Add 1560 1560 1028; Mul 1028 8 1083; Mul 1037 137 1086; Sub 1028 1028 1037; Sub 1560 1560 1028;
  Mul 1232 140 1232; Mul 1028 100 1174; Mul 1028 117 1028; Sub 1232 1232 1028; Add 1560 1560 1232;
  Mul 1232 141 1076; Mul 1232 121 1232; Mul 1028 142 1567; Add 1232 1232 1028; Sub 1560 1560 1232;
  Mul 1560 114 1560; Mul 1232 134 1568; Sub 1560 1560 1232; Mul 1232 145 1374; Mul 1028 8 1136;
  Mul 1037 130 1086; Sub 1028 1028 1037; Mul 1037 137 1459; Mul 1053 9 1083; Add 1037 1037 1053;
  Sub 1028 1028 1037; Mul 1453 111 1453; Mul 1037 96 1174; Add 1453 1453 1037; Add 1028 1028 1453;
  Mul 1453 141 1632; Mul 1453 124 1453; Mul 1076 146 1076; Add 1453 1453 1076; Sub 1028 1028 1453;
  Mul 1028 113 1028; Add 1232 1232 1028; Sub 1560 1560 1232; Mul 1232 1073 1560; Add 1639 1639 1232;
  Mul 1232 150 1374; Mul 1028 149 1459; Mul 1453 148 1174; Mul 1076 147 1508; Mul 1037 109 1076;
  Sub 1453 1453 1037; Add 1083 1083 1453; Mul 1453 9 1083; Add 1028 1028 1453; Mul 1174 151 1174;
  Mul 1453 147 1049; Mul 1037 109 1453; Add 1174 1174 1037; Add 1136 1136 1174; Mul 1174 8 1136;
  Mul 1037 152 1086; Sub 1174 1174 1037; Sub 1028 1028 1174; Mul 1174 148 1459; Mul 1037 9 1076;
  Sub 1174 1174 1037; Mul 1037 8 1453; Mul 1053 151 1086; Sub 1037 1037 1053; Sub 1174 1174 1037;
  Mul 1037 108 1174; Add 1028 1028 1037; Mul 1028 113 1028; Add 1232 1232 1028; Mul 1028 152 1459;
  Mul 1136 9 1136; Add 1028 1028 1136].
Definition casadi_f0_195 : list instruction := [
  Mul 1083 8 1083; Mul 1136 149 1086; Sub 1083 1083 1136; Add 1028 1028 1083; Mul 1083 151 1459;
  Mul 1136 9 1453; Add 1083 1083 1136; Mul 1136 148 1086; Mul 1037 8 1076; Add 1136 1136 1037;
  Sub 1083 1083 1136; Mul 1083 108 1083; Add 1028 1028 1083; Mul 1028 114 1028; Mul 1083 155 1568;
  Sub 1028 1028 1083; Add 1232 1232 1028; Mul 1028 1050 1232; Add 1639 1639 1028; Mul 1028 159 1459;
  Mul 1083 156 1082; Mul 1083 82 1083; Mul 1136 157 1385; Add 1083 1083 1136; Sub 1148 1148 1083;
  Mul 1083 66 1148; Mul 1136 158 1621; Sub 1083 1083 1136; Mul 1136 161 1042; Mul 1385 156 1385;
  Mul 1385 87 1385; Mul 1037 160 1689; Sub 1385 1385 1037; Sub 1638 1638 1385; Mul 1385 53 1638;
  Add 1136 1136 1385; Add 1083 1083 1136; Mul 1136 9 1083; Add 1028 1028 1136; Mul 1638 66 1638;
  Mul 1136 161 1621; Sub 1638 1638 1136; Mul 1136 158 1042; Mul 1148 53 1148; Add 1136 1136 1148;
  Sub 1638 1638 1136; Mul 1136 8 1638; Mul 1148 163 1086; Sub 1136 1136 1148; Add 1028 1028 1136;
  Mul 1136 167 1042; Mul 1148 166 1082; Mul 1385 53 1148; Add 1136 1136 1385; Mul 1385 164 1621;
  Mul 1037 156 1689; Mul 1053 66 1037; Add 1385 1385 1053; Sub 1136 1136 1385; Mul 1385 8 1136;
  Mul 1053 165 1086; Sub 1385 1385 1053; Mul 1053 169 1459; Mul 1148 66 1148; Mul 1020 167 1621;
  Sub 1148 1148 1020; Mul 1020 164 1042; Mul 1037 53 1037; Sub 1020 1020 1037; Sub 1148 1148 1020;
  Mul 1020 9 1148; Add 1053 1053 1020; Sub 1385 1385 1053; Mul 1385 108 1385; Sub 1028 1028 1385;
  Mul 1028 114 1028; Mul 1385 162 1568; Sub 1028 1028 1385; Mul 1385 170 1374; Mul 1083 8 1083;
  Mul 1053 159 1086; Sub 1083 1083 1053; Mul 1053 163 1459; Mul 1638 9 1638; Add 1053 1053 1638;
  Sub 1083 1083 1053; Mul 1053 165 1459; Mul 1638 9 1136; Add 1053 1053 1638; Mul 1638 8 1148;
  Mul 1020 169 1086; Sub 1638 1638 1020; Add 1053 1053 1638; Mul 1638 108 1053; Add 1083 1083 1638;
  Mul 1083 113 1083; Add 1385 1385 1083; Sub 1028 1028 1385; Mul 1385 1070 1028; Add 1639 1639 1385;
  Mul 1385 179 1459; Mul 1083 177 1042; Mul 1638 174 1290; Mul 1290 173 1290; Mul 1020 49 1290;
  Add 1638 1638 1020; Add 1638 1638 1611; Mul 1020 174 1145; Mul 1037 35 1290; Add 1020 1020 1037;
  Mul 1037 176 1186; Sub 1020 1020 1037; Mul 1037 62 1020; Mul 1048 176 1145; Mul 1198 19 1290;
  Mul 1035 174 1186; Sub 1198 1198 1035; Sub 1048 1048 1198; Mul 1198 48 1048; Sub 1037 1037 1198;
  Add 1037 1638 1037; Mul 1198 53 1037; Add 1083 1083 1198; Mul 1198 176 1157; Sub 1024 1024 1198;
  Mul 1198 19 1024; Mul 1035 180 1186; Sub 1198 1198 1035; Mul 1035 182 1145; Mul 1290 56 1290;
  Mul 1157 174 1157; Sub 1290 1290 1157; Sub 1290 1290 1482; Mul 1482 35 1290; Add 1035 1035 1482;
  Add 1198 1198 1035; Mul 1035 55 1020; Add 1198 1198 1035; Mul 1035 66 1198; Mul 1482 181 1621;
  Sub 1035 1035 1482; Sub 1083 1083 1035; Mul 1035 86 1020; Sub 1083 1083 1035; Mul 1035 9 1083;
  Add 1385 1385 1035; Mul 1035 181 1042; Mul 1198 53 1198; Add 1035 1035 1198].
Definition casadi_f0_196 : list instruction := [
  Mul 1037 66 1037; Mul 1198 177 1621; Sub 1037 1037 1198; Add 1035 1035 1037; Mul 1037 91 1020;
  Add 1035 1035 1037; Mul 1037 8 1035; Mul 1198 184 1086; Sub 1037 1037 1198; Add 1385 1385 1037;
  Mul 1020 102 1020; Mul 1037 66 1048; Mul 1198 178 1621; Sub 1037 1037 1198; Mul 1198 8 1037;
  Mul 1482 185 1086; Sub 1198 1198 1482; Mul 1482 187 1459; Mul 1157 178 1042; Mul 1690 53 1048;
  Add 1157 1157 1690; Mul 1690 9 1157; Add 1482 1482 1690; Add 1198 1198 1482; Mul 1198 108 1198;
  Sub 1020 1020 1198; Add 1385 1385 1020; Mul 1385 114 1385; Mul 1020 183 1568; Sub 1385 1385 1020;
  Mul 1020 186 1374; Mul 1083 8 1083; Mul 1198 179 1086; Sub 1083 1083 1198; Mul 1198 184 1459; Mul 1035 9 1035;
  Add 1198 1198 1035; Sub 1083 1083 1198; Mul 1198 185 1459; Mul 1035 9 1037; Add 1198 1198 1035;
  Mul 1035 8 1157; Mul 1482 187 1086; Sub 1035 1035 1482; Sub 1198 1198 1035; Mul 1035 108 1198;
  Add 1083 1083 1035; Mul 1083 113 1083; Add 1020 1020 1083; Sub 1385 1385 1020; Mul 1020 1059 1385;
  Add 1639 1639 1020; Mul 1020 199 1459; Mul 1083 196 1145; Mul 1035 197 1692; Mul 1482 195 1021;
  Sub 1035 1035 1482; Mul 1482 190 1021; Mul 1690 192 1692; Add 1482 1482 1690; Mul 1690 198 1482;
  Add 1035 1035 1690; Mul 1690 35 1035; Add 1083 1083 1690; Mul 1690 189 1186; Mul 1612 25 1482;
  Mul 1089 190 1692; Mul 1077 192 1021; Sub 1089 1089 1077; Mul 1077 32 1089; Add 1612 1612 1077;
  Mul 1077 19 1612; Add 1690 1690 1077; Sub 1083 1083 1690; Mul 1690 48 1482; Mul 1077 19 1089;
  Mul 1521 194 1186; Sub 1077 1077 1521; Mul 1521 55 1077; Add 1690 1690 1521; Sub 1083 1083 1690;
  Mul 1690 66 1083; Mul 1521 193 1621; Sub 1690 1690 1521; Mul 1521 202 1042; Mul 1451 198 1089;
  Mul 1204 197 1021; Mul 1657 195 1692; Add 1204 1204 1657; Sub 1451 1451 1204; Mul 1204 62 1077;
  Mul 1657 194 1145; Mul 1089 35 1089; Add 1657 1657 1089; Mul 1089 48 1657; Sub 1204 1204 1089;
  Add 1204 1451 1204; Mul 1089 53 1204; Add 1521 1521 1089; Add 1690 1690 1521; Mul 1521 86 1077;
  Sub 1690 1690 1521; Mul 1521 9 1690; Add 1020 1020 1521; Mul 1204 66 1204; Mul 1521 202 1621;
  Sub 1204 1204 1521; Mul 1521 193 1042; Mul 1083 53 1083; Add 1521 1521 1083; Sub 1204 1204 1521;
  Mul 1521 91 1077; Add 1204 1204 1521; Mul 1521 8 1204; Mul 1083 205 1086; Sub 1521 1521 1083;
  Add 1020 1020 1521; Mul 1077 102 1077; Mul 1521 66 1657; Mul 1083 203 1621; Sub 1521 1521 1083;
  Mul 1083 191 1042; Mul 1089 53 1482; Sub 1083 1083 1089; Add 1521 1521 1083; Mul 1083 8 1521;
  Mul 1089 206 1086; Sub 1083 1083 1089; Mul 1089 208 1459; Mul 1159 191 1621; Mul 1372 66 1482;
  Add 1159 1159 1372; Mul 1372 203 1042; Mul 1566 53 1657; Add 1372 1372 1566; Add 1159 1159 1372;
  Mul 1372 9 1159; Sub 1089 1089 1372; Sub 1083 1083 1089; Mul 1083 108 1083; Sub 1077 1077 1083;
  Add 1020 1020 1077; Mul 1020 114 1020; Mul 1077 204 1568; Sub 1020 1020 1077; Mul 1077 207 1374;
  Mul 1690 8 1690; Mul 1083 199 1086; Sub 1690 1690 1083].
Definition casadi_f0_197 : list instruction := [
  Mul 1083 205 1459; Mul 1204 9 1204; Add 1083 1083 1204; Sub 1690 1690 1083; Mul 1083 206 1459;
  Mul 1204 9 1521; Add 1083 1083 1204; Mul 1204 208 1086; Mul 1089 8 1159; Add 1204 1204 1089;
  Sub 1083 1083 1204; Mul 1204 108 1083; Add 1690 1690 1204; Mul 1690 113 1690; Add 1077 1077 1690;
  Sub 1020 1020 1077; Mul 1077 1043 1020; Add 1639 1639 1077; Div 1639 1639 1085; Mul 1077 1072 1639;
  Sub 1240 1240 1077; Mul 1077 211 1240; Mul 1690 216 1374; Arg 1204 1 36; Mul 1089 215 1204; Mul 1372 113 1089;
  Sub 1690 1690 1372; Mul 1372 218 1690; Mul 1566 114 1038; Mul 1510 0 1568; Sub 1566 1566 1510;
  Mul 1510 217 1566; Add 1372 1372 1510; Mul 1204 216 1204; Mul 1510 1 1204; Mul 1179 215 1090;
  Add 1510 1510 1179; Sub 1372 1372 1510; Mul 1510 0 1374; Mul 1179 113 1038; Add 1510 1510 1179;
  Mul 1179 220 1510; Mul 1360 114 1089; Mul 1440 216 1568; Add 1360 1360 1440; Mul 1440 221 1360;
  Sub 1179 1179 1440; Sub 1372 1372 1179; Mul 1179 214 1372; Mul 1440 213 1179; Mul 1440 212 1440;
  Mul 1531 225 1440; Mul 1415 114 1204; Mul 1134 215 1568; Sub 1415 1415 1134; Mul 1134 101 1415;
  Mul 1081 107 1089; Sub 1134 1134 1081; Mul 1081 223 1134; Add 1098 1531 1081; Mul 1489 216 1090;
  Mul 1177 1 1089; Sub 1489 1489 1177; Mul 1177 113 1204; Mul 1515 215 1374; Add 1177 1177 1515;
  Mul 1515 218 1177; Mul 1486 228 1566; Add 1515 1515 1486; Add 1489 1489 1515; Mul 1515 221 1415;
  Mul 1486 224 1510; Add 1515 1515 1486; Sub 1489 1489 1515; Mul 1515 214 1489; Mul 1486 213 1515;
  Mul 1486 212 1486; Mul 1469 231 1486; Mul 1315 101 1360; Mul 1161 107 1204; Add 1315 1315 1161;
  Mul 1161 230 1315; Sub 1469 1469 1161; Sub 1161 1098 1469; Add 1081 1081 1531; Sub 1469 1081 1469;
  Add 1531 1161 1469; Mul 1133 144 1374; Mul 1641 215 1133; Mul 1449 240 1204; Add 1641 1641 1449;
  Mul 1449 236 1568; Mul 1635 238 1374; Add 1449 1449 1635; Mul 1635 220 1449; Mul 1548 237 1360;
  Add 1635 1635 1548; Sub 1641 1641 1635; Mul 1635 115 1089; Add 1641 1641 1635; Mul 1635 212 1315;
  Mul 1548 242 1635; Mul 1171 101 1374; Mul 1393 241 1171; Add 1548 1548 1393; Add 1548 1641 1548;
  Mul 1393 244 1548; Mul 1152 213 1489; Mul 1312 243 1152; Add 1104 1393 1312; Mul 1125 237 1415;
  Mul 1667 224 1449; Sub 1125 1125 1667; Mul 1133 216 1133; Mul 1667 240 1089; Sub 1133 1133 1667;
  Sub 1125 1125 1133; Mul 1133 115 1204; Sub 1125 1125 1133; Mul 1133 212 1134; Mul 1133 242 1133;
  Mul 1667 247 1171; Sub 1133 1133 1667; Sub 1133 1125 1133; Mul 1667 249 1133; Mul 1686 213 1372;
  Mul 1514 248 1686; Add 1301 1667 1514; Sub 1350 1104 1301; Sub 1531 1531 1350; Add 1514 1514 1667;
  Add 1312 1312 1393; Sub 1393 1514 1312; Add 1531 1531 1393; Mul 1393 9 1690; Mul 1667 217 1459;
  Add 1393 1393 1667; Mul 1667 8 1360; Mul 1350 220 1086; Add 1667 1667 1350; Sub 1393 1393 1667;
  Mul 1667 254 1393; Mul 1350 218 1459; Mul 1352 9 1566; Add 1350 1350 1352; Mul 1352 8 1510; Mul 1036 221 1086;
  Sub 1352 1352 1036; Sub 1350 1350 1352].
Definition casadi_f0_198 : list instruction := [
  Mul 1352 253 1350; Add 1667 1667 1352; Mul 1690 8 1690; Mul 1352 217 1086; Sub 1690 1690 1352;
  Mul 1352 220 1459; Mul 1036 9 1360; Sub 1352 1352 1036; Sub 1690 1690 1352; Mul 1352 257 1690;
  Mul 1036 221 1459; Mul 1258 9 1510; Add 1036 1036 1258; Mul 1258 8 1566; Mul 1675 218 1086;
  Sub 1258 1258 1675; Add 1036 1036 1258; Mul 1258 256 1036; Add 1352 1352 1258; Mul 1258 259 1204;
  Sub 1675 1090 1506; Mul 1263 215 1675; Add 1258 1258 1263; Sub 1352 1352 1258; Add 1667 1667 1352;
  Mul 1352 213 1667; Mul 1258 276 1352; Mul 1263 114 1459; Mul 1237 9 1568; Sub 1263 1263 1237; Mul 1237 8 1374;
  Mul 1321 113 1086; Sub 1237 1237 1321; Sub 1263 1263 1237; Mul 1237 260 1263; Mul 1321 9 1374;
  Mul 1535 113 1459; Add 1321 1321 1535; Mul 1535 8 1568; Mul 1091 114 1086; Add 1535 1535 1091;
  Sub 1321 1321 1535; Mul 1535 263 1321; Add 1237 1237 1535; Mul 1535 265 1237; Mul 1091 8 1415;
  Mul 1285 224 1086; Sub 1091 1091 1285; Mul 1285 9 1177; Mul 1599 228 1459; Add 1285 1285 1599;
  Add 1091 1091 1285; Mul 1285 262 1091; Add 1535 1535 1285; Mul 1285 127 1263; Mul 1599 268 1321;
  Add 1285 1285 1599; Mul 1599 216 1285; Mul 1396 267 1089; Sub 1599 1599 1396; Add 1535 1535 1599;
  Mul 1599 135 1393; Mul 1396 95 1204; Add 1599 1599 1396; Sub 1535 1535 1599; Mul 1599 102 1415;
  Mul 1396 108 1089; Sub 1599 1599 1396; Mul 1396 79 1091; Mul 1412 8 1177; Mul 1494 228 1086;
  Sub 1412 1412 1494; Mul 1494 9 1415; Mul 1165 224 1459; Add 1494 1494 1165; Sub 1412 1412 1494;
  Mul 1494 85 1412; Mul 1165 81 1089; Sub 1494 1494 1165; Add 1396 1396 1494; Add 1396 1599 1396;
  Mul 1494 269 1396; Mul 1494 275 1494; Mul 1165 79 1263; Mul 1223 85 1321; Add 1165 1165 1223;
  Mul 1223 102 1374; Sub 1165 1165 1223; Mul 1188 272 1165; Add 1494 1494 1188; Sub 1494 1535 1494;
  Mul 1188 258 1494; Add 1114 1258 1188; Mul 1250 254 1091; Mul 1698 265 1350; Add 1250 1250 1698;
  Mul 1698 216 1675; Mul 1367 259 1089; Sub 1698 1698 1367; Mul 1367 257 1412; Mul 1668 273 1036;
  Add 1367 1367 1668; Add 1698 1698 1367; Add 1250 1250 1698; Mul 1698 213 1250; Mul 1367 284 1698;
  Mul 1668 253 1237; Mul 1681 262 1393; Add 1668 1668 1681; Mul 1285 215 1285; Mul 1681 267 1204;
  Add 1285 1285 1681; Sub 1668 1668 1285; Mul 1285 95 1089; Mul 1681 135 1091; Add 1285 1285 1681;
  Add 1668 1668 1285; Mul 1285 79 1393; Mul 1681 85 1690; Mul 1491 81 1204; Sub 1681 1681 1491;
  Add 1285 1285 1681; Mul 1681 102 1360; Mul 1491 108 1204; Add 1681 1681 1491; Sub 1285 1285 1681;
  Mul 1491 269 1285; Mul 1206 275 1491; Mul 1591 283 1165; Add 1206 1206 1591; Sub 1206 1668 1206;
  Mul 1591 279 1206; Add 1546 1367 1591; Sub 1181 1114 1546; Mul 1227 292 1165; Mul 1300 288 1321;
  Mul 1597 287 1459; Mul 1121 108 1566; Mul 1288 9 1121; Add 1597 1597 1288; Mul 1288 102 1090;
  Mul 1244 108 1510; Add 1288 1288 1244; Mul 1244 8 1288; Mul 1672 289 1086; Sub 1244 1244 1672;
  Sub 1597 1597 1244; Mul 1244 264 1597; Add 1300 1300 1244].
Definition casadi_f0_199 : list instruction := [
  Mul 1244 291 1263; Mul 1121 8 1121; Mul 1672 287 1086; Sub 1121 1121 1672; Mul 1672 289 1459; Mul 1288 9 1288;
  Add 1672 1672 1288; Add 1121 1121 1672; Mul 1672 261 1121; Add 1244 1244 1672; Sub 1300 1300 1244;
  Mul 1244 281 1250; Mul 1672 278 1681; Sub 1244 1244 1672; Mul 1672 255 1599; Mul 1288 270 1667;
  Add 1672 1672 1288; Sub 1244 1244 1672; Add 1300 1300 1244; Mul 1244 213 1300; Mul 1244 269 1244;
  Mul 1672 275 1244; Add 1288 1227 1672; Mul 1543 288 1690; Mul 1376 256 1597; Add 1543 1543 1376;
  Mul 1376 295 1204; Mul 1362 102 1566; Mul 1128 215 1362; Add 1376 1376 1128; Sub 1543 1543 1376;
  Mul 1376 291 1393; Mul 1128 253 1121; Add 1376 1376 1128; Sub 1543 1543 1376; Mul 1376 296 1599;
  Mul 1128 254 1263; Mul 1311 261 1350; Add 1128 1128 1311; Mul 1311 257 1321; Mul 1445 264 1036;
  Add 1311 1311 1445; Add 1128 1128 1311; Mul 1311 270 1128; Add 1376 1376 1311; Mul 1311 274 1250;
  Mul 1445 278 1223; Sub 1311 1311 1445; Sub 1376 1376 1311; Add 1543 1543 1376; Mul 1376 213 1543;
  Mul 1376 269 1376; Mul 1311 282 1376; Mul 1445 297 1285; Add 1418 1311 1445; Mul 1421 216 1362;
  Mul 1694 295 1089; Sub 1421 1421 1694; Mul 1694 288 1412; Mul 1092 273 1597; Add 1694 1694 1092;
  Add 1421 1421 1694; Mul 1694 291 1091; Mul 1092 265 1121; Add 1694 1694 1092; Sub 1421 1421 1694;
  Mul 1694 274 1667; Mul 1092 255 1223; Sub 1694 1694 1092; Mul 1092 281 1128; Mul 1600 296 1681;
  Sub 1092 1092 1600; Sub 1694 1694 1092; Add 1421 1421 1694; Mul 1694 213 1421; Mul 1694 269 1694;
  Mul 1092 271 1694; Mul 1600 300 1396; Add 1579 1092 1600; Add 1672 1672 1227; Add 1227 1579 1672;
  Add 1418 1418 1227; Sub 1116 1288 1418; Add 1445 1445 1311; Add 1600 1600 1092; Add 1288 1600 1288;
  Add 1445 1445 1288; Sub 1672 1672 1445; Add 1116 1116 1672; Add 1591 1591 1367; Add 1188 1188 1258;
  Sub 1258 1591 1188; Add 1116 1116 1258; Sub 1181 1181 1116; Mul 1116 66 1393; Mul 1258 253 1621;
  Sub 1116 1116 1258; Mul 1258 53 1690; Mul 1367 256 1042; Add 1258 1258 1367; Sub 1116 1116 1258;
  Mul 1258 308 1116; Mul 1367 66 1350; Mul 1672 254 1621; Sub 1367 1367 1672; Mul 1672 257 1042;
  Mul 1092 53 1036; Add 1672 1672 1092; Sub 1367 1367 1672; Mul 1672 304 1367; Add 1258 1258 1672;
  Mul 1672 53 1393; Mul 1092 253 1042; Add 1672 1672 1092; Mul 1092 66 1690; Mul 1311 256 1621;
  Sub 1092 1092 1311; Add 1672 1672 1092; Mul 1092 311 1672; Mul 1311 254 1042; Mul 1501 53 1350;
  Add 1311 1311 1501; Mul 1501 66 1036; Mul 1541 257 1621; Sub 1501 1501 1541; Add 1311 1311 1501;
  Mul 1501 310 1311; Add 1092 1092 1501; Mul 1501 313 1204; Add 1541 1691 1675; Mul 1411 215 1541;
  Add 1501 1501 1411; Sub 1092 1092 1501; Add 1258 1258 1092; Mul 1092 213 1258; Mul 1501 330 1092;
  Mul 1411 66 1263; Mul 1164 261 1621; Sub 1411 1411 1164; Mul 1164 53 1321; Mul 1403 264 1042;
  Add 1164 1164 1403; Sub 1411 1411 1164; Mul 1164 314 1411; Mul 1403 53 1263; Mul 1378 261 1042;
  Add 1403 1403 1378; Mul 1378 66 1321; Mul 1497 264 1621].
Definition casadi_f0_200 : list instruction := [
  Sub 1378 1378 1497; Add 1403 1403 1378; Mul 1378 317 1403; Add 1164 1164 1378; Mul 1378 319 1164;
  Mul 1497 66 1091; Mul 1375 265 1621; Sub 1497 1497 1375; Mul 1375 53 1412; Mul 1215 273 1042;
  Add 1375 1375 1215; Sub 1497 1497 1375; Mul 1375 316 1497; Add 1378 1378 1375; Mul 1375 128 1411;
  Mul 1215 322 1403; Add 1375 1375 1215; Mul 1215 216 1375; Mul 1484 321 1089; Sub 1215 1215 1484;
  Add 1378 1378 1215; Mul 1215 131 1116; Mul 1484 68 1204; Add 1215 1215 1484; Sub 1378 1378 1215;
  Mul 1215 91 1091; Mul 1484 86 1412; Add 1215 1215 1484; Add 1215 1599 1215; Mul 1484 61 1497;
  Mul 1481 53 1091; Mul 1115 265 1042; Add 1481 1481 1115; Mul 1115 66 1412; Mul 1209 273 1621;
  Sub 1115 1115 1209; Add 1481 1481 1115; Mul 1115 54 1481; Mul 1209 47 1089; Sub 1115 1115 1209;
  Add 1484 1484 1115; Add 1484 1215 1484; Mul 1115 323 1484; Mul 1115 329 1115; Mul 1209 91 1263;
  Mul 1321 86 1321; Add 1209 1209 1321; Sub 1209 1209 1223; Mul 1321 61 1411; Mul 1131 54 1403;
  Add 1321 1321 1131; Add 1321 1209 1321; Mul 1131 326 1321; Add 1115 1115 1131; Sub 1115 1378 1115;
  Mul 1131 312 1115; Add 1498 1501 1131; Mul 1557 308 1497; Mul 1330 319 1367; Add 1557 1557 1330;
  Mul 1330 216 1541; Mul 1254 313 1089; Sub 1330 1330 1254; Mul 1254 311 1481; Mul 1384 327 1311;
  Add 1254 1254 1384; Add 1330 1330 1254; Add 1557 1557 1330; Mul 1330 213 1557; Mul 1254 338 1330;
  Mul 1384 304 1164; Mul 1478 316 1116; Add 1384 1384 1478; Mul 1375 215 1375; Mul 1478 321 1204;
  Add 1375 1375 1478; Sub 1384 1384 1375; Mul 1375 68 1089; Mul 1478 131 1497; Add 1375 1375 1478;
  Add 1384 1384 1375; Mul 1375 91 1393; Mul 1690 86 1690; Add 1375 1375 1690; Sub 1375 1375 1681;
  Mul 1690 61 1116; Mul 1478 54 1672; Mul 1433 47 1204; Sub 1478 1478 1433; Add 1690 1690 1478;
  Add 1690 1375 1690; Mul 1478 323 1690; Mul 1433 329 1478; Mul 1275 337 1321; Add 1433 1433 1275;
  Sub 1433 1384 1433; Mul 1275 333 1433; Add 1389 1254 1275; Sub 1316 1498 1389; Mul 1107 346 1321;
  Mul 1218 342 1411; Mul 1210 86 1675; Sub 1210 1210 1121; Mul 1121 66 1210; Mul 1359 341 1621;
  Sub 1121 1121 1359; Mul 1359 343 1042; Mul 1675 91 1675; Sub 1597 1597 1675; Mul 1675 53 1597;
  Add 1359 1359 1675; Sub 1121 1121 1359; Mul 1359 315 1121; Add 1218 1218 1359; Mul 1359 345 1403;
  Mul 1675 341 1042; Mul 1210 53 1210; Add 1675 1675 1210; Mul 1597 66 1597; Mul 1210 343 1621;
  Sub 1597 1597 1210; Add 1675 1675 1597; Mul 1597 318 1675; Add 1359 1359 1597; Add 1218 1218 1359;
  Mul 1359 332 1375; Mul 1597 335 1557; Add 1359 1359 1597; Mul 1597 309 1215; Mul 1210 324 1258;
  Add 1597 1597 1210; Sub 1359 1359 1597; Add 1218 1218 1359; Mul 1359 213 1218; Mul 1359 323 1359;
  Mul 1597 329 1359; Add 1210 1107 1597; Mul 1287 342 1116; Mul 1192 304 1121; Add 1287 1287 1192;
  Mul 1192 345 1672; Mul 1272 310 1675; Add 1192 1192 1272; Mul 1272 350 1204; Mul 1350 86 1350;
  Mul 1036 91 1036; Sub 1350 1350 1036; Sub 1362 1362 1350; Mul 1350 215 1362].
Definition casadi_f0_201 : list instruction := [
  Add 1272 1272 1350; Sub 1192 1192 1272; Add 1287 1287 1192; Mul 1192 349 1215; Mul 1272 308 1411;
  Mul 1350 315 1367; Add 1272 1272 1350; Mul 1350 311 1403; Mul 1036 318 1311; Add 1350 1350 1036;
  Add 1272 1272 1350; Mul 1350 324 1272; Add 1192 1192 1350; Mul 1350 332 1209; Mul 1036 328 1557;
  Add 1350 1350 1036; Sub 1192 1192 1350; Add 1287 1287 1192; Mul 1192 213 1287; Mul 1192 323 1192;
  Mul 1350 336 1192; Mul 1036 351 1690; Add 1146 1350 1036; Mul 1590 342 1497; Mul 1493 319 1121;
  Add 1590 1590 1493; Mul 1493 216 1362; Mul 1394 350 1089; Sub 1493 1493 1394; Mul 1394 345 1481;
  Mul 1511 327 1675; Add 1394 1394 1511; Add 1493 1493 1394; Add 1590 1590 1493; Mul 1493 309 1209;
  Mul 1394 328 1258; Add 1493 1493 1394; Mul 1394 349 1375; Mul 1511 335 1272; Add 1394 1394 1511;
  Sub 1493 1493 1394; Add 1590 1590 1493; Mul 1493 213 1590; Mul 1493 323 1493; Mul 1394 325 1493;
  Mul 1511 354 1484; Add 1118 1394 1511; Add 1597 1597 1107; Add 1107 1118 1597; Add 1146 1146 1107;
  Sub 1470 1210 1146; Add 1036 1036 1350; Add 1511 1511 1394; Add 1210 1511 1210; Add 1036 1036 1210;
  Sub 1597 1597 1036; Add 1470 1470 1597; Add 1275 1275 1254; Add 1131 1131 1501; Sub 1501 1275 1131;
  Add 1470 1470 1501; Sub 1316 1316 1470; Mul 1470 19 1116; Mul 1501 304 1186; Sub 1470 1470 1501;
  Mul 1501 35 1204; Mul 1254 215 1145; Add 1501 1501 1254; Add 1470 1470 1501; Mul 1501 362 1470;
  Mul 1254 19 1367; Mul 1597 308 1186; Sub 1254 1254 1597; Mul 1597 313 1145; Mul 1394 35 1541;
  Add 1597 1597 1394; Sub 1254 1254 1597; Mul 1597 358 1254; Add 1501 1501 1597; Mul 1597 35 1116;
  Mul 1394 304 1145; Add 1597 1597 1394; Mul 1394 19 1204; Mul 1350 215 1186; Sub 1394 1394 1350;
  Sub 1597 1597 1394; Mul 1394 365 1597; Mul 1350 308 1145; Mul 1474 35 1367; Add 1350 1350 1474;
  Mul 1474 19 1541; Mul 1669 313 1186; Sub 1474 1474 1669; Add 1350 1350 1474; Mul 1474 364 1350;
  Add 1394 1394 1474; Mul 1474 367 1672; Sub 1669 1311 1101; Mul 1587 310 1669; Add 1474 1474 1587;
  Add 1394 1394 1474; Add 1501 1501 1394; Mul 1394 213 1501; Mul 1474 385 1394; Mul 1587 19 1411;
  Mul 1659 315 1186; Sub 1587 1587 1659; Mul 1659 368 1587; Mul 1464 35 1411; Mul 1195 315 1145;
  Add 1464 1464 1195; Mul 1195 39 1464; Mul 1307 373 1403; Add 1195 1195 1307; Add 1659 1659 1195;
  Mul 1195 372 1659; Mul 1307 19 1497; Mul 1341 319 1186; Sub 1307 1307 1341; Mul 1341 216 1145;
  Mul 1609 35 1089; Sub 1341 1341 1609; Sub 1307 1307 1341; Mul 1341 370 1307; Add 1195 1195 1341;
  Mul 1341 39 1587; Mul 1609 376 1464; Add 1341 1341 1609; Mul 1609 377 1341; Mul 1655 35 1497;
  Mul 1603 319 1145; Add 1655 1655 1603; Mul 1603 19 1089; Mul 1169 216 1186; Add 1603 1603 1169;
  Sub 1655 1655 1603; Mul 1603 375 1655; Add 1609 1609 1603; Add 1195 1195 1609; Mul 1609 69 1597;
  Add 1195 1195 1609; Mul 1609 62 1497; Mul 1603 55 1481; Mul 1169 48 1089; Sub 1603 1603 1169;
  Add 1609 1609 1603; Add 1609 1215 1609; Mul 1603 380 1307; Mul 1169 24 1655].
Definition casadi_f0_202 : list instruction := [
  Mul 1471 31 1481; Add 1169 1169 1471; Add 1603 1603 1169; Add 1603 1609 1603; Mul 1169 378 1603;
  Mul 1169 384 1169; Mul 1471 62 1411; Mul 1100 55 1403; Add 1471 1471 1100; Add 1471 1209 1471;
  Mul 1100 380 1587; Mul 1682 24 1464; Mul 1170 31 1403; Add 1682 1682 1170; Add 1100 1100 1682;
  Add 1100 1471 1100; Mul 1682 382 1100; Add 1169 1169 1682; Sub 1169 1195 1169; Mul 1682 366 1169;
  Add 1170 1474 1682; Mul 1606 362 1307; Mul 1345 372 1254; Add 1606 1606 1345; Mul 1345 365 1655;
  Mul 1221 377 1350; Add 1345 1345 1221; Mul 1221 367 1481; Mul 1455 327 1669; Add 1221 1221 1455;
  Add 1345 1345 1221; Add 1606 1606 1345; Mul 1345 213 1606; Mul 1221 393 1345; Mul 1455 358 1659;
  Mul 1625 370 1470; Add 1455 1455 1625; Mul 1625 364 1341; Mul 1387 375 1597; Add 1625 1625 1387;
  Add 1455 1455 1625; Mul 1625 69 1655; Sub 1455 1455 1625; Mul 1625 62 1116; Mul 1387 55 1672;
  Mul 1340 48 1204; Sub 1387 1387 1340; Add 1625 1625 1387; Add 1625 1375 1625; Mul 1387 380 1470;
  Mul 1340 24 1597; Mul 1444 31 1672; Add 1340 1340 1444; Add 1387 1387 1340; Add 1387 1625 1387;
  Mul 1340 378 1387; Mul 1444 384 1340; Mul 1245 392 1100; Add 1444 1444 1245; Sub 1444 1455 1444;
  Mul 1245 388 1444; Add 1368 1221 1245; Sub 1268 1170 1368; Mul 1430 401 1100; Mul 1193 397 1587;
  Mul 1231 48 1311; Mul 1547 55 1541; Sub 1231 1231 1547; Sub 1121 1121 1231; Mul 1231 19 1121;
  Mul 1547 396 1186; Sub 1231 1231 1547; Mul 1547 398 1145; Mul 1468 55 1367; Mul 1311 62 1311;
  Sub 1468 1468 1311; Sub 1362 1362 1468; Mul 1468 35 1362; Add 1547 1547 1468; Sub 1231 1231 1547;
  Mul 1547 369 1231; Add 1193 1193 1547; Mul 1547 400 1464; Mul 1468 396 1145; Mul 1121 35 1121;
  Add 1468 1468 1121; Mul 1362 19 1362; Mul 1121 398 1186; Sub 1362 1362 1121; Add 1468 1468 1362;
  Mul 1362 371 1468; Add 1547 1547 1362; Mul 1362 402 1403; Mul 1541 62 1541; Mul 1367 48 1367;
  Sub 1541 1541 1367; Sub 1675 1675 1541; Mul 1541 318 1675; Add 1362 1362 1541; Add 1547 1547 1362;
  Add 1193 1193 1547; Mul 1547 387 1625; Mul 1362 390 1606; Add 1547 1547 1362; Mul 1362 363 1609;
  Mul 1541 379 1501; Add 1362 1362 1541; Sub 1547 1547 1362; Add 1193 1193 1547; Mul 1547 213 1193;
  Mul 1547 378 1547; Mul 1362 384 1547; Add 1541 1430 1362; Mul 1367 397 1470; Mul 1121 358 1231;
  Add 1367 1367 1121; Mul 1121 400 1597; Mul 1311 364 1468; Add 1121 1121 1311; Mul 1311 402 1672;
  Mul 1677 310 1675; Add 1311 1311 1677; Add 1121 1121 1311; Add 1367 1367 1121; Mul 1121 405 1609;
  Mul 1311 362 1587; Mul 1677 369 1254; Add 1311 1311 1677; Mul 1677 365 1464; Mul 1584 371 1350;
  Add 1677 1677 1584; Mul 1584 367 1403; Mul 1435 318 1669; Add 1584 1584 1435; Add 1677 1677 1584;
  Add 1311 1311 1677; Mul 1677 379 1311; Add 1121 1121 1677; Mul 1677 387 1471; Mul 1584 383 1606;
  Add 1677 1677 1584; Sub 1121 1121 1677; Add 1367 1367 1121; Mul 1121 213 1367; Mul 1121 378 1121;
  Mul 1677 391 1121; Mul 1584 406 1387; Add 1435 1677 1584; Mul 1636 397 1307].
Definition casadi_f0_203 : list instruction := [
  Mul 1678 372 1231; Add 1636 1636 1678; Mul 1678 400 1655; Mul 1408 377 1468; Add 1678 1678 1408;
  Mul 1408 402 1481; Mul 1097 327 1675; Add 1408 1408 1097; Add 1678 1678 1408; Add 1636 1636 1678;
  Mul 1678 363 1471; Mul 1408 383 1501; Add 1678 1678 1408; Mul 1408 405 1625; Mul 1097 390 1311;
  Add 1408 1408 1097; Sub 1678 1678 1408; Add 1636 1636 1678; Mul 1678 213 1636; Mul 1678 378 1678;
  Mul 1408 381 1678; Mul 1097 409 1603; Add 1520 1408 1097; Add 1362 1362 1430; Add 1430 1520 1362;
  Add 1435 1435 1430; Sub 1225 1541 1435; Add 1584 1584 1677; Add 1097 1097 1408; Add 1541 1097 1541;
  Add 1584 1584 1541; Sub 1362 1362 1584; Add 1225 1225 1362; Add 1245 1245 1221; Add 1682 1682 1474;
  Sub 1474 1245 1682; Add 1225 1225 1474; Sub 1268 1268 1225; Mul 1225 413 1470; Sub 1474 1254 1349;
  Mul 1221 358 1474; Add 1225 1225 1221; Mul 1221 16 1597; Mul 1362 364 1021; Sub 1221 1221 1362;
  Mul 1362 15 1672; Mul 1408 310 1692; Add 1362 1362 1408; Sub 1221 1221 1362; Mul 1362 419 1221;
  Mul 1408 16 1350; Mul 1677 365 1021; Sub 1408 1408 1677; Mul 1677 367 1692; Mul 1458 15 1669;
  Add 1677 1677 1458; Sub 1408 1408 1677; Mul 1677 418 1408; Add 1362 1362 1677; Mul 1677 15 1597;
  Mul 1458 364 1692; Add 1677 1677 1458; Mul 1458 16 1672; Mul 1355 310 1021; Sub 1458 1458 1355;
  Add 1677 1677 1458; Mul 1458 422 1677; Mul 1355 365 1692; Mul 1313 15 1350; Add 1355 1355 1313;
  Mul 1313 16 1669; Mul 1551 367 1021; Sub 1313 1313 1551; Add 1355 1355 1313; Mul 1313 421 1355;
  Add 1458 1458 1313; Add 1362 1362 1458; Add 1225 1225 1362; Mul 1362 213 1225; Mul 1458 439 1362;
  Mul 1313 423 1587; Mul 1551 16 1464; Mul 1251 371 1021; Sub 1551 1551 1251; Mul 1251 15 1403;
  Mul 1120 318 1692; Add 1251 1251 1120; Sub 1551 1551 1251; Mul 1251 40 1551; Mul 1120 15 1464;
  Mul 1542 371 1692; Add 1120 1120 1542; Mul 1542 16 1403; Mul 1476 318 1021; Sub 1542 1542 1476;
  Add 1120 1120 1542; Mul 1542 42 1120; Add 1251 1251 1542; Add 1313 1313 1251; Mul 1251 372 1313;
  Mul 1542 424 1307; Add 1251 1251 1542; Mul 1542 40 1587; Mul 1476 14 1551; Mul 1392 18 1120;
  Add 1476 1476 1392; Add 1542 1542 1476; Mul 1476 429 1542; Mul 1392 16 1655; Mul 1144 377 1021;
  Sub 1392 1392 1144; Mul 1144 15 1481; Mul 1480 327 1692; Add 1144 1144 1480; Sub 1392 1392 1144;
  Mul 1144 428 1392; Add 1476 1476 1144; Add 1251 1251 1476; Mul 1476 43 1221; Mul 1144 431 1470;
  Sub 1476 1476 1144; Add 1251 1251 1476; Mul 1476 198 1307; Mul 1144 25 1655; Mul 1480 32 1481;
  Add 1144 1144 1480; Add 1476 1476 1144; Add 1476 1609 1476; Mul 1144 433 1307; Mul 1480 26 1392;
  Mul 1339 15 1655; Mul 1207 377 1692; Add 1339 1339 1207; Mul 1207 16 1481; Mul 1406 327 1021;
  Sub 1207 1207 1406; Add 1339 1339 1207; Mul 1207 28 1339; Add 1480 1480 1207; Add 1144 1144 1480;
  Add 1144 1476 1144; Mul 1480 430 1144; Mul 1480 438 1480; Mul 1207 198 1587; Mul 1406 25 1464;
  Mul 1216 32 1403; Add 1406 1406 1216; Add 1207 1207 1406; Add 1207 1471 1207].
Definition casadi_f0_204 : list instruction := [
  Mul 1406 433 1587; Mul 1216 26 1551; Mul 1502 28 1120; Add 1216 1216 1502; Add 1406 1406 1216;
  Add 1406 1207 1406; Mul 1216 435 1406; Add 1480 1480 1216; Sub 1480 1251 1480; Mul 1216 420 1480;
  Add 1502 1458 1216; Mul 1665 413 1307; Mul 1347 372 1474; Add 1665 1665 1347; Mul 1347 419 1392;
  Mul 1443 429 1408; Add 1347 1347 1443; Mul 1443 422 1339; Mul 1111 436 1355; Add 1443 1443 1111;
  Add 1347 1347 1443; Add 1665 1665 1347; Mul 1347 213 1665; Mul 1443 447 1347; Mul 1111 358 1313;
  Mul 1507 424 1470; Add 1111 1111 1507; Mul 1507 418 1542; Mul 1640 428 1221; Add 1507 1507 1640;
  Add 1111 1111 1507; Mul 1507 43 1392; Mul 1640 431 1307; Sub 1507 1507 1640; Sub 1111 1111 1507;
  Mul 1507 198 1470; Mul 1640 25 1597; Mul 1071 32 1672; Add 1640 1640 1071; Add 1507 1507 1640;
  Add 1507 1625 1507; Mul 1640 433 1470; Mul 1071 26 1221; Mul 1573 28 1677; Add 1071 1071 1573;
  Add 1640 1640 1071; Add 1640 1507 1640; Mul 1071 430 1640; Mul 1573 438 1071; Mul 1479 446 1406;
  Add 1573 1573 1479; Sub 1573 1111 1573; Mul 1479 442 1573; Add 1401 1443 1479; Sub 1124 1502 1401;
  Mul 1282 455 1406; Mul 1324 450 1587; Mul 1663 25 1669; Mul 1477 32 1350; Sub 1663 1663 1477;
  Sub 1231 1231 1663; Mul 1663 369 1231; Add 1324 1324 1663; Mul 1663 453 1551; Mul 1477 32 1254;
  Mul 1669 198 1669; Sub 1477 1477 1669; Sub 1468 1468 1477; Mul 1477 16 1468; Mul 1669 452 1021;
  Sub 1477 1477 1669; Mul 1669 454 1692; Mul 1350 198 1350; Mul 1254 25 1254; Sub 1350 1350 1254;
  Sub 1675 1675 1350; Mul 1350 15 1675; Add 1669 1669 1350; Sub 1477 1477 1669; Mul 1669 425 1477;
  Add 1663 1663 1669; Mul 1669 456 1120; Mul 1350 452 1692; Mul 1468 15 1468; Add 1350 1350 1468;
  Mul 1675 16 1675; Mul 1468 454 1021; Sub 1675 1675 1468; Add 1350 1350 1675; Mul 1675 427 1350;
  Add 1669 1669 1675; Add 1663 1663 1669; Add 1324 1324 1663; Mul 1663 441 1507; Mul 1669 444 1665;
  Add 1663 1663 1669; Mul 1669 417 1476; Mul 1675 432 1225; Add 1669 1669 1675; Sub 1663 1663 1669;
  Add 1324 1324 1663; Mul 1663 213 1324; Mul 1663 430 1663; Mul 1669 438 1663; Add 1675 1282 1669;
  Mul 1468 450 1470; Mul 1254 358 1231; Add 1468 1468 1254; Mul 1254 453 1221; Mul 1261 418 1477;
  Add 1254 1254 1261; Mul 1677 456 1677; Mul 1261 421 1350; Add 1677 1677 1261; Add 1254 1254 1677;
  Add 1468 1468 1254; Mul 1254 459 1476; Mul 1677 413 1587; Mul 1474 369 1474; Add 1677 1677 1474;
  Mul 1474 419 1551; Mul 1408 425 1408; Add 1474 1474 1408; Mul 1120 422 1120; Mul 1355 427 1355;
  Add 1120 1120 1355; Add 1474 1474 1120; Add 1677 1677 1474; Mul 1474 432 1677; Add 1254 1254 1474;
  Mul 1474 441 1207; Mul 1120 437 1665; Add 1474 1474 1120; Sub 1254 1254 1474; Add 1468 1468 1254;
  Mul 1254 213 1468; Mul 1254 430 1254; Mul 1474 445 1254; Mul 1120 460 1640; Add 1355 1474 1120;
  Mul 1408 450 1307; Mul 1231 372 1231; Add 1408 1408 1231; Mul 1231 453 1392; Mul 1477 429 1477;
  Add 1231 1231 1477; Mul 1477 456 1339; Mul 1350 436 1350; Add 1477 1477 1350].
Definition casadi_f0_205 : list instruction := [
  Add 1231 1231 1477; Add 1408 1408 1231; Mul 1231 417 1207; Mul 1477 437 1225; Add 1231 1231 1477;
  Mul 1477 459 1507; Mul 1350 444 1677; Add 1477 1477 1350; Sub 1231 1231 1477; Add 1408 1408 1231;
  Mul 1231 213 1408; Mul 1231 430 1231; Mul 1477 434 1231; Mul 1350 463 1144; Add 1261 1477 1350;
  Add 1669 1669 1282; Add 1282 1261 1669; Add 1355 1355 1282; Sub 1052 1675 1355; Add 1120 1120 1474;
  Add 1350 1350 1477; Add 1675 1350 1675; Add 1120 1120 1675; Sub 1669 1669 1120; Add 1052 1052 1669;
  Add 1479 1479 1443; Add 1216 1216 1458; Sub 1458 1479 1216; Add 1052 1052 1458; Sub 1124 1124 1052;
  Add 1268 1268 1124; Add 1316 1316 1268; Add 1181 1181 1316; Add 1531 1531 1181; Mul 1531 0 1531;
  Mul 1181 235 1038; Add 1531 1531 1181; Mul 1237 261 1237; Mul 1181 262 1263; Add 1237 1237 1181;
  Mul 1164 315 1164; Mul 1181 316 1411; Add 1164 1164 1181; Mul 1659 369 1659; Mul 1181 370 1587;
  Add 1659 1659 1181; Mul 1341 371 1341; Mul 1181 375 1464; Add 1341 1341 1181; Add 1659 1659 1341;
  Mul 1313 369 1313; Mul 1341 424 1587; Add 1313 1313 1341; Mul 1542 425 1542; Mul 1341 428 1551;
  Add 1542 1542 1341; Add 1313 1313 1542; Add 1542 1659 1313; Sub 1341 1387 1640; Mul 1181 480 1341;
  Sub 1316 1603 1144; Mul 1052 1197 1316; Add 1458 1181 1052; Mul 1458 20 1458; Add 1542 1542 1458;
  Add 1458 1164 1542; Mul 1443 485 1387; Mul 1669 50 1640; Add 1443 1443 1669; Sub 1669 1690 1443;
  Mul 1477 487 1669; Mul 1474 485 1603; Mul 1644 50 1144; Add 1474 1474 1644; Sub 1644 1484 1474;
  Mul 1588 1286 1644; Add 1084 1477 1588; Mul 1084 37 1084; Add 1458 1458 1084; Add 1084 1237 1458;
  Mul 1196 493 1690; Mul 1194 83 1443; Add 1196 1196 1194; Sub 1194 1285 1196; Mul 1308 495 1194;
  Mul 1289 493 1484; Mul 1199 83 1474; Add 1289 1289 1199; Sub 1199 1396 1289; Mul 1110 1294 1199;
  Add 1051 1308 1110; Mul 1051 80 1051; Add 1084 1084 1051; Mul 1051 237 1374; Mul 1449 113 1449;
  Sub 1051 1051 1449; Sub 1449 1084 1051; Mul 1495 501 1396; Mul 1554 104 1289; Add 1495 1495 1554;
  Sub 1554 1134 1495; Mul 1380 1299 1554; Mul 1208 501 1285; Mul 1654 104 1196; Add 1208 1208 1654;
  Add 1654 1315 1208; Mul 1017 503 1654; Sub 1434 1380 1017; Mul 1434 100 1434; Add 1449 1449 1434;
  Mul 1449 508 1449; Mul 1434 216 1372; Mul 1504 219 1089; Sub 1434 1434 1504; Mul 1504 215 1489;
  Mul 1490 227 1204; Add 1504 1504 1490; Add 1434 1434 1504; Mul 1504 500 1434; Add 1449 1449 1504;
  Add 1504 1455 1111; Mul 1341 20 1341; Mul 1490 512 1341; Sub 1358 1100 1406; Mul 1465 511 1358;
  Add 1490 1490 1465; Sub 1504 1504 1490; Add 1490 1384 1504; Mul 1669 37 1669; Mul 1465 516 1669;
  Mul 1642 485 1100; Mul 1142 50 1406; Add 1642 1642 1142; Sub 1142 1321 1642; Mul 1182 514 1142;
  Add 1465 1465 1182; Sub 1490 1490 1465; Add 1465 1668 1490; Mul 1194 80 1194; Mul 1182 520 1194;
  Mul 1605 493 1321; Mul 1292 83 1642; Add 1605 1605 1292; Sub 1292 1165 1605; Mul 1305 518 1292;
  Add 1182 1182 1305; Sub 1465 1465 1182; Add 1182 1641 1465; Mul 1654 100 1654].
Definition casadi_f0_206 : list instruction := [
  Mul 1305 524 1654; Mul 1296 501 1165; Mul 1337 104 1605; Add 1296 1296 1337; Add 1337 1171 1296;
  Mul 1310 522 1337; Add 1305 1305 1310; Add 1182 1182 1305; Mul 1305 526 1182; Mul 1310 221 1374;
  Mul 1510 113 1510; Add 1310 1310 1510; Mul 1566 114 1566; Mul 1510 218 1568; Sub 1566 1566 1510;
  Add 1310 1310 1566; Mul 1566 216 1310; Mul 1510 525 1089; Sub 1566 1566 1510; Mul 1510 521 1566;
  Add 1305 1305 1510; Add 1510 1195 1251; Mul 1549 20 1316; Mul 1549 512 1549; Mul 1363 529 1358;
  Add 1549 1549 1363; Sub 1510 1510 1549; Add 1549 1378 1510; Mul 1363 37 1644; Mul 1363 516 1363;
  Mul 1139 531 1142; Add 1363 1363 1139; Sub 1549 1549 1363; Add 1363 1535 1549; Mul 1139 80 1199;
  Mul 1139 520 1139; Mul 1234 533 1292; Add 1139 1139 1234; Sub 1363 1363 1139; Add 1139 1125 1363;
  Mul 1234 100 1554; Mul 1234 524 1234; Mul 1320 535 1337; Sub 1234 1234 1320; Sub 1139 1139 1234;
  Mul 1234 536 1139; Mul 1320 215 1310; Mul 1536 525 1204; Add 1320 1320 1536; Mul 1536 534 1320;
  Add 1234 1234 1536; Add 1305 1305 1234; Sub 1449 1449 1305; Mul 1305 120 1208; Mul 1234 527 1315;
  Sub 1305 1305 1234; Mul 1234 539 1305; Mul 1536 120 1296; Mul 1572 527 1171; Sub 1536 1536 1572;
  Mul 1572 526 1536; Mul 1518 538 1566; Add 1572 1572 1518; Mul 1518 508 1305; Mul 1447 537 1434;
  Add 1518 1518 1447; Add 1572 1572 1518; Mul 1518 540 1310; Mul 1447 214 1089; Mul 1371 525 1447;
  Sub 1518 1518 1371; Sub 1572 1572 1518; Mul 1572 141 1572; Mul 1371 537 1572; Add 1234 1234 1371;
  Mul 1371 527 1134; Mul 1550 120 1495; Add 1371 1371 1550; Mul 1550 546 1371; Mul 1281 544 1310;
  Mul 1696 214 1204; Mul 1699 525 1696; Add 1281 1281 1699; Mul 1699 508 1371; Mul 1700 543 1434;
  Add 1699 1699 1700; Mul 1700 536 1536; Mul 1062 538 1320; Add 1700 1700 1062; Add 1699 1699 1700;
  Sub 1699 1281 1699; Mul 1699 141 1699; Mul 1700 543 1699; Add 1550 1550 1700; Sub 1234 1234 1550;
  Add 1449 1449 1234; Mul 1234 553 1686; Mul 1550 238 1415; Mul 1177 236 1177; Mul 1700 144 1089;
  Sub 1177 1177 1700; Add 1550 1550 1177; Mul 1177 224 1550; Mul 1700 542 1415; Add 1177 1177 1700;
  Mul 1415 144 1415; Mul 1700 549 1089; Sub 1415 1415 1700; Mul 1700 216 1415; Mul 1062 548 1089;
  Sub 1700 1700 1062; Add 1177 1177 1700; Mul 1700 1334 1315; Mul 1062 1336 1171; Add 1241 1700 1062;
  Mul 1241 212 1241; Sub 1241 1177 1241; Mul 1693 249 1241; Add 1149 1234 1693; Mul 1163 556 1152;
  Mul 1550 220 1550; Mul 1360 542 1360; Sub 1550 1550 1360; Mul 1415 215 1415; Mul 1360 548 1204;
  Add 1415 1415 1360; Sub 1550 1550 1415; Mul 1415 241 1134; Mul 1635 225 1635; Sub 1415 1415 1635;
  Sub 1415 1550 1415; Mul 1635 244 1415; Add 1360 1163 1635; Sub 1149 1149 1360; Mul 1360 242 1440;
  Mul 1503 223 1171; Sub 1360 1360 1503; Mul 1503 1342 1134; Sub 1700 1503 1700; Mul 1700 212 1700;
  Sub 1700 1700 1051; Mul 1377 249 1700; Mul 1409 551 1686; Add 1243 1377 1409; Mul 1610 560 1548;
  Mul 1512 213 1310; Mul 1344 243 1512; Add 1592 1610 1344; Sub 1243 1243 1592].
Definition casadi_f0_207 : list instruction := [
  Add 1243 1360 1243; Sub 1149 1149 1243; Sub 1243 1051 1177; Mul 1592 219 1243; Mul 1450 557 1372;
  Add 1592 1592 1450; Mul 1450 227 1550; Mul 1442 555 1489; Add 1450 1450 1442; Add 1592 1592 1450;
  Mul 1450 525 1641; Mul 1442 239 1310; Add 1450 1450 1442; Add 1592 1592 1450; Mul 1450 340 1134;
  Mul 1442 231 1489; Mul 1391 227 1315; Sub 1442 1442 1391; Mul 1391 219 1134; Mul 1130 225 1372;
  Add 1391 1391 1130; Sub 1442 1442 1391; Mul 1442 212 1442; Mul 1391 225 1442; Add 1450 1450 1391;
  Mul 1391 242 1372; Mul 1130 219 1171; Sub 1391 1391 1130; Mul 1130 231 1310; Mul 1648 525 1315;
  Sub 1130 1130 1648; Sub 1391 1391 1130; Sub 1391 1179 1391; Mul 1391 212 1391; Mul 1130 242 1391;
  Mul 1648 559 1171; Sub 1130 1130 1648; Add 1450 1450 1130; Sub 1592 1592 1450; Mul 1592 213 1592;
  Sub 1149 1149 1592; Mul 1450 567 1352; Mul 1130 260 1091; Mul 1648 263 1412; Mul 1382 127 1089;
  Sub 1648 1648 1382; Add 1130 1130 1648; Mul 1648 265 1130; Mul 1382 547 1091; Add 1648 1648 1382;
  Mul 1091 127 1091; Mul 1412 268 1412; Mul 1382 563 1089; Sub 1412 1412 1382; Add 1091 1091 1412;
  Mul 1412 216 1091; Mul 1382 562 1089; Sub 1412 1412 1382; Add 1648 1648 1412; Mul 1412 1138 1285;
  Mul 1382 1357 1165; Add 1346 1412 1382; Mul 1346 269 1346; Add 1346 1648 1346; Mul 1338 258 1346;
  Add 1492 1450 1338; Mul 1222 570 1698; Mul 1130 253 1130; Mul 1393 547 1393; Add 1130 1130 1393;
  Mul 1091 215 1091; Mul 1393 562 1204; Add 1091 1091 1393; Sub 1130 1130 1091; Mul 1263 135 1263;
  Sub 1130 1130 1263; Mul 1491 271 1491; Mul 1263 283 1396; Add 1491 1491 1263; Sub 1491 1130 1491;
  Mul 1263 279 1491; Add 1091 1222 1263; Sub 1492 1492 1091; Mul 1091 300 1165; Mul 1393 275 1694;
  Add 1538 1091 1393; Mul 1475 271 1244; Mul 1032 292 1396; Add 1660 1475 1032; Add 1538 1538 1660;
  Mul 1660 1366 1396; Add 1412 1412 1660; Mul 1412 269 1412; Add 1412 1237 1412; Mul 1456 258 1412;
  Mul 1365 565 1352; Add 1528 1456 1365; Mul 1487 574 1206; Mul 1463 213 1128; Mul 1589 284 1463;
  Add 1448 1487 1589; Sub 1528 1528 1448; Add 1538 1538 1528; Sub 1492 1492 1538; Mul 1538 571 1667;
  Add 1528 1648 1237; Mul 1448 255 1528; Sub 1538 1538 1448; Mul 1448 278 1130; Mul 1030 569 1250;
  Add 1448 1448 1030; Add 1538 1538 1448; Mul 1448 296 1668; Mul 1030 280 1128; Add 1448 1448 1030;
  Add 1538 1538 1448; Mul 1448 471 1396; Mul 1030 278 1285; Mul 1509 282 1250; Add 1030 1030 1509;
  Mul 1509 255 1396; Mul 1563 271 1667; Add 1509 1509 1563; Sub 1030 1030 1509; Sub 1030 1300 1030;
  Mul 1030 269 1030; Mul 1509 271 1030; Add 1448 1448 1509; Mul 1509 573 1165; Mul 1563 255 1165;
  Mul 1513 275 1667; Add 1563 1563 1513; Mul 1513 296 1285; Mul 1256 282 1128; Add 1513 1513 1256;
  Sub 1563 1563 1513; Sub 1563 1421 1563; Mul 1563 269 1563; Mul 1513 275 1563; Add 1509 1509 1513;
  Sub 1448 1448 1509; Add 1538 1538 1448; Mul 1538 213 1538; Sub 1492 1492 1538; Mul 1448 581 1092;
  Mul 1509 314 1497; Mul 1513 317 1481; Mul 1256 128 1089; Sub 1513 1513 1256].
Definition casadi_f0_208 : list instruction := [
  Add 1509 1509 1513; Mul 1513 319 1509; Mul 1256 561 1497; Add 1513 1513 1256; Mul 1497 128 1497;
  Mul 1256 322 1481; Mul 1112 577 1089; Sub 1256 1256 1112; Add 1497 1497 1256; Mul 1256 216 1497;
  Mul 1112 576 1089; Sub 1256 1256 1112; Add 1513 1513 1256; Mul 1256 1379 1690; Mul 1112 1381 1321;
  Add 1018 1256 1112; Mul 1018 323 1018; Add 1018 1513 1018; Mul 1593 312 1018; Add 1103 1448 1593;
  Mul 1594 584 1330; Mul 1509 304 1509; Mul 1116 561 1116; Add 1509 1509 1116; Mul 1497 215 1497;
  Mul 1116 576 1204; Add 1497 1497 1116; Sub 1509 1509 1497; Mul 1411 131 1411; Sub 1509 1509 1411;
  Mul 1478 325 1478; Mul 1411 337 1484; Add 1478 1478 1411; Sub 1478 1509 1478; Mul 1411 333 1478;
  Add 1497 1594 1411; Sub 1103 1103 1497; Mul 1497 354 1321; Mul 1116 329 1493; Add 1555 1497 1116;
  Mul 1228 325 1359; Mul 1441 346 1484; Add 1156 1228 1441; Add 1555 1555 1156; Mul 1156 1390 1484;
  Add 1256 1256 1156; Mul 1256 323 1256; Add 1256 1164 1256; Mul 1602 312 1256; Mul 1266 579 1092;
  Add 1270 1602 1266; Mul 1369 588 1433; Mul 1386 213 1272; Mul 1265 338 1386; Add 1395 1369 1265;
  Sub 1270 1270 1395; Add 1555 1555 1270; Sub 1103 1103 1555; Mul 1555 585 1258; Add 1270 1513 1164;
  Mul 1395 309 1270; Sub 1555 1555 1395; Mul 1395 332 1509; Mul 1427 583 1557; Add 1395 1395 1427;
  Add 1555 1555 1395; Mul 1395 349 1384; Mul 1427 334 1272; Add 1395 1395 1427; Add 1555 1555 1395;
  Mul 1395 473 1484; Mul 1427 332 1690; Mul 1673 336 1557; Add 1427 1427 1673; Mul 1673 309 1484;
  Mul 1674 325 1258; Add 1673 1673 1674; Sub 1427 1427 1673; Sub 1427 1218 1427; Mul 1427 323 1427;
  Mul 1673 325 1427; Add 1395 1395 1673; Mul 1673 587 1321; Mul 1674 309 1321; Mul 1499 329 1258;
  Add 1674 1674 1499; Mul 1499 349 1690; Mul 1622 336 1272; Add 1499 1499 1622; Sub 1674 1674 1499;
  Sub 1674 1590 1674; Mul 1674 323 1674; Mul 1499 329 1674; Add 1673 1673 1499; Sub 1395 1395 1673;
  Add 1555 1555 1395; Mul 1555 213 1555; Sub 1103 1103 1555; Mul 1395 594 1394; Mul 1673 368 1307;
  Mul 1499 39 1655; Mul 1622 373 1481; Add 1499 1499 1622; Add 1673 1673 1499; Mul 1499 372 1673;
  Mul 1622 575 1307; Add 1499 1499 1622; Mul 1622 39 1307; Mul 1096 376 1655; Add 1622 1622 1096;
  Mul 1096 377 1622; Mul 1655 590 1655; Add 1096 1096 1655; Add 1499 1499 1096; Mul 1096 1404 1387;
  Mul 1655 1405 1100; Add 1284 1096 1655; Mul 1284 378 1284; Add 1284 1499 1284; Mul 1150 366 1284;
  Add 1279 1395 1150; Mul 1488 597 1345; Mul 1673 358 1673; Mul 1370 575 1470; Add 1673 1673 1370;
  Mul 1622 364 1622; Mul 1597 590 1597; Add 1622 1622 1597; Add 1673 1673 1622; Mul 1464 69 1464;
  Add 1673 1673 1464; Mul 1340 381 1340; Mul 1464 392 1603; Add 1340 1340 1464; Sub 1340 1673 1340;
  Mul 1464 388 1340; Add 1622 1488 1464; Sub 1279 1279 1622; Mul 1622 409 1100; Mul 1597 384 1678;
  Add 1370 1622 1597; Mul 1317 381 1547; Mul 1108 401 1603; Add 1318 1317 1108; Add 1370 1370 1318;
  Mul 1318 1414 1603; Add 1096 1096 1318; Mul 1096 378 1096; Add 1096 1659 1096].
Definition casadi_f0_209 : list instruction := [
  Mul 1353 366 1096; Mul 1189 592 1394; Add 1431 1353 1189; Mul 1190 601 1444; Mul 1652 213 1311;
  Mul 1522 393 1652; Add 1523 1190 1522; Sub 1431 1431 1523; Add 1370 1370 1431; Sub 1279 1279 1370;
  Mul 1370 598 1501; Add 1431 1499 1659; Mul 1523 363 1431; Sub 1370 1370 1523; Mul 1523 387 1673;
  Mul 1607 596 1606; Add 1523 1523 1607; Add 1370 1370 1523; Mul 1523 405 1455; Mul 1607 389 1311;
  Add 1523 1523 1607; Add 1370 1370 1523; Mul 1523 475 1603; Mul 1607 387 1387; Mul 1022 391 1606;
  Add 1607 1607 1022; Mul 1022 363 1603; Mul 1671 381 1501; Add 1022 1022 1671; Sub 1607 1607 1022;
  Sub 1607 1193 1607; Mul 1607 378 1607; Mul 1022 381 1607; Add 1523 1523 1022; Mul 1022 600 1100;
  Mul 1671 363 1100; Mul 1662 384 1501; Add 1671 1671 1662; Mul 1662 405 1387; Mul 1425 391 1311;
  Add 1662 1662 1425; Sub 1671 1671 1662; Sub 1671 1636 1671; Mul 1671 378 1671; Mul 1662 384 1671;
  Add 1022 1022 1662; Sub 1523 1523 1022; Add 1370 1370 1523; Mul 1370 213 1370; Sub 1279 1279 1370;
  Mul 1523 607 1362; Mul 1022 423 1307; Mul 1662 40 1392; Mul 1425 42 1339; Add 1662 1662 1425;
  Add 1022 1022 1662; Mul 1662 372 1022; Mul 1425 589 1307; Add 1662 1662 1425; Mul 1425 40 1307;
  Mul 1529 14 1392; Mul 1339 18 1339; Add 1529 1529 1339; Add 1425 1425 1529; Mul 1529 429 1425;
  Mul 1392 603 1392; Add 1529 1529 1392; Add 1662 1662 1529; Mul 1529 1428 1640; Mul 1392 1264 1406;
  Add 1339 1529 1392; Mul 1339 430 1339; Add 1339 1662 1339; Mul 1168 420 1339; Add 1314 1523 1168;
  Mul 1454 610 1347; Mul 1022 358 1022; Mul 1417 589 1470; Add 1022 1022 1417; Mul 1425 418 1425;
  Mul 1221 603 1221; Add 1425 1425 1221; Add 1022 1022 1425; Mul 1551 43 1551; Mul 1425 431 1587;
  Sub 1551 1551 1425; Add 1022 1022 1551; Mul 1071 434 1071; Mul 1551 446 1144; Add 1071 1071 1551;
  Sub 1071 1022 1071; Mul 1551 442 1071; Add 1425 1454 1551; Sub 1314 1314 1425; Mul 1425 463 1406;
  Mul 1221 438 1231; Add 1417 1425 1221; Mul 1154 434 1663; Mul 1402 455 1144; Add 1224 1154 1402;
  Add 1417 1417 1224; Mul 1224 1437 1144; Add 1529 1529 1224; Mul 1529 430 1529; Add 1529 1313 1529;
  Mul 1661 420 1529; Mul 1309 605 1362; Add 1277 1661 1309; Mul 1649 614 1573; Mul 1271 213 1677;
  Mul 1544 447 1271; Add 1556 1649 1544; Sub 1277 1277 1556; Add 1417 1417 1277; Sub 1314 1314 1417;
  Mul 1417 13 1225; Add 1277 1662 1313; Mul 1556 417 1277; Sub 1417 1417 1556; Mul 1556 441 1022;
  Mul 1213 609 1665; Add 1556 1556 1213; Add 1417 1417 1556; Mul 1556 459 1111; Mul 1213 443 1677;
  Add 1556 1556 1213; Add 1417 1417 1556; Mul 1556 477 1144; Mul 1213 441 1640; Mul 1532 445 1665;
  Add 1213 1213 1532; Mul 1532 417 1144; Mul 1467 434 1225; Add 1532 1532 1467; Sub 1213 1213 1532;
  Sub 1213 1324 1213; Mul 1213 430 1213; Mul 1532 434 1213; Add 1556 1556 1532; Mul 1532 611 1406;
  Mul 1467 417 1406; Mul 1274 438 1225; Add 1467 1467 1274; Mul 1274 459 1640; Mul 1416 445 1677;
  Add 1274 1274 1416; Sub 1467 1467 1274; Sub 1467 1408 1467; Mul 1467 430 1467].
Definition casadi_f0_210 : list instruction := [
  Mul 1274 438 1467; Add 1532 1532 1274; Sub 1556 1556 1532; Add 1417 1417 1556; Mul 1417 213 1417;
  Sub 1314 1314 1417; Add 1279 1279 1314; Add 1103 1103 1279; Add 1492 1492 1103; Add 1149 1149 1492;
  Mul 1149 216 1149; Mul 1556 554 1089; Sub 1149 1149 1556; Mul 1556 242 1486; Mul 1532 230 1171;
  Sub 1556 1556 1532; Mul 1532 560 1133; Mul 1274 248 1512; Add 1416 1532 1274; Mul 1700 244 1700;
  Mul 1460 551 1152; Add 1618 1700 1460; Sub 1416 1416 1618; Sub 1416 1556 1416; Mul 1618 556 1686;
  Mul 1257 249 1415; Add 1173 1618 1257; Mul 1422 558 1152; Sub 1503 1503 1062; Mul 1503 212 1503;
  Add 1503 1243 1503; Mul 1062 244 1503; Add 1203 1422 1062; Sub 1173 1173 1203; Add 1416 1416 1173;
  Mul 1173 219 1550; Mul 1203 555 1372; Add 1173 1173 1203; Mul 1203 227 1177; Mul 1419 550 1489;
  Add 1203 1203 1419; Add 1173 1173 1203; Mul 1203 525 1125; Mul 1419 246 1310; Add 1203 1203 1419;
  Add 1173 1173 1203; Mul 1203 231 1442; Mul 1419 340 1315; Sub 1203 1203 1419; Mul 1419 525 1134;
  Mul 1132 225 1310; Add 1419 1419 1132; Mul 1132 242 1489; Mul 1679 227 1171; Sub 1132 1132 1679;
  Sub 1419 1419 1132; Add 1419 1515 1419; Mul 1419 212 1419; Mul 1132 242 1419; Mul 1679 616 1171;
  Sub 1132 1132 1679; Sub 1203 1203 1132; Add 1173 1173 1203; Mul 1173 213 1173; Add 1416 1416 1173;
  Mul 1203 570 1352; Mul 1132 258 1491; Add 1679 1203 1132; Mul 1650 572 1698; Add 1660 1660 1382;
  Mul 1660 269 1660; Sub 1660 1660 1528; Mul 1382 279 1660; Add 1670 1650 1382; Sub 1679 1679 1670;
  Mul 1670 297 1165; Mul 1187 275 1376; Add 1666 1670 1187; Mul 1176 282 1244; Mul 1276 292 1285;
  Add 1175 1176 1276; Add 1666 1666 1175; Mul 1175 574 1494; Mul 1143 276 1463; Add 1586 1175 1143;
  Mul 1412 279 1412; Mul 1246 565 1698; Add 1102 1412 1246; Sub 1586 1586 1102; Add 1666 1666 1586;
  Sub 1679 1679 1666; Mul 1666 255 1130; Mul 1586 569 1667; Add 1666 1666 1586; Mul 1586 278 1648;
  Mul 1102 564 1250; Add 1586 1586 1102; Add 1666 1666 1586; Mul 1586 296 1535; Mul 1102 266 1128;
  Add 1586 1586 1102; Add 1666 1666 1586; Mul 1586 617 1165; Mul 1102 296 1396; Mul 1141 271 1128;
  Add 1102 1102 1141; Mul 1141 278 1165; Mul 1457 275 1250; Add 1141 1141 1457; Sub 1102 1102 1141;
  Sub 1102 1543 1102; Mul 1102 269 1102; Mul 1141 275 1102; Add 1586 1586 1141; Mul 1141 471 1285;
  Mul 1457 282 1030; Add 1141 1141 1457; Sub 1586 1586 1141; Add 1666 1666 1586; Mul 1666 213 1666;
  Add 1679 1679 1666; Mul 1586 584 1092; Mul 1141 312 1478; Add 1457 1586 1141; Mul 1388 586 1330;
  Add 1156 1156 1112; Mul 1156 323 1156; Sub 1156 1156 1270; Mul 1112 333 1156; Add 1335 1388 1112;
  Sub 1457 1457 1335; Mul 1335 351 1321; Mul 1183 329 1192; Add 1646 1335 1183; Mul 1323 336 1359;
  Mul 1627 346 1690; Add 1624 1323 1627; Add 1646 1646 1624; Mul 1624 588 1115; Mul 1583 330 1386;
  Add 1230 1624 1583; Mul 1256 333 1256; Mul 1400 579 1330; Add 1147 1256 1400; Sub 1230 1230 1147;
  Add 1646 1646 1230; Sub 1457 1457 1646; Mul 1646 309 1509; Mul 1230 583 1258].
Definition casadi_f0_211 : list instruction := [
  Add 1646 1646 1230; Mul 1230 332 1513; Mul 1147 578 1557; Add 1230 1230 1147; Add 1646 1646 1230;
  Mul 1230 349 1378; Mul 1147 320 1272; Add 1230 1230 1147; Add 1646 1646 1230; Mul 1230 619 1321;
  Mul 1147 349 1484; Mul 1248 325 1272; Add 1147 1147 1248; Mul 1248 332 1321; Mul 1570 329 1557;
  Add 1248 1248 1570; Sub 1147 1147 1248; Sub 1147 1287 1147; Mul 1147 323 1147; Mul 1248 329 1147;
  Add 1230 1230 1248; Mul 1248 473 1690; Mul 1570 336 1427; Add 1248 1248 1570; Sub 1230 1230 1248;
  Add 1646 1646 1230; Mul 1646 213 1646; Add 1457 1457 1646; Mul 1230 597 1394; Mul 1248 366 1340;
  Add 1570 1230 1248; Mul 1420 599 1345; Add 1318 1318 1655; Mul 1318 378 1318; Sub 1318 1318 1431;
  Mul 1655 388 1318; Add 1298 1420 1655; Sub 1570 1570 1298; Mul 1298 406 1100; Mul 1383 384 1121;
  Add 1325 1298 1383; Mul 1348 391 1547; Mul 1343 401 1387; Add 1238 1348 1343; Add 1325 1325 1238;
  Mul 1238 601 1169; Mul 1201 385 1652; Add 1319 1238 1201; Mul 1096 388 1096; Mul 1645 592 1345;
  Add 1438 1096 1645; Sub 1319 1319 1438; Add 1325 1325 1319; Sub 1570 1570 1325; Mul 1325 363 1673;
  Mul 1319 596 1501; Add 1325 1325 1319; Mul 1319 387 1499; Mul 1438 591 1606; Add 1319 1319 1438;
  Add 1325 1325 1319; Mul 1319 405 1195; Mul 1438 374 1311; Add 1319 1319 1438; Add 1325 1325 1319;
  Mul 1319 621 1100; Mul 1438 405 1603; Mul 1628 381 1311; Add 1438 1438 1628; Mul 1628 387 1100;
  Mul 1242 384 1606; Add 1628 1628 1242; Sub 1438 1438 1628; Sub 1438 1367 1438; Mul 1438 378 1438;
  Mul 1628 384 1438; Add 1319 1319 1628; Mul 1628 475 1387; Mul 1242 391 1607; Add 1628 1628 1242;
  Sub 1319 1319 1628; Add 1325 1325 1319; Mul 1325 213 1325; Add 1570 1570 1325; Mul 1319 610 1362;
  Mul 1628 420 1071; Add 1242 1319 1628; Mul 1537 612 1347; Add 1224 1224 1392; Mul 1224 430 1224;
  Sub 1224 1224 1277; Mul 1392 442 1224; Add 1229 1537 1392; Sub 1242 1242 1229; Mul 1229 460 1406;
  Mul 1364 438 1254; Add 1239 1229 1364; Mul 1519 445 1663; Mul 1436 455 1640; Add 1087 1519 1436;
  Add 1239 1239 1087; Mul 1087 614 1480; Mul 1127 439 1271; Add 1180 1087 1127; Mul 1529 442 1529;
  Mul 1582 605 1347; Add 1322 1529 1582; Sub 1180 1180 1322; Add 1239 1239 1180; Sub 1242 1242 1239;
  Mul 1239 417 1022; Mul 1180 609 1225; Add 1239 1239 1180; Mul 1180 441 1662; Mul 1322 604 1665;
  Add 1180 1180 1322; Add 1239 1239 1180; Mul 1180 459 1251; Mul 1322 426 1677; Add 1180 1180 1322;
  Add 1239 1239 1180; Mul 1180 623 1406; Mul 1322 459 1144; Mul 1278 434 1677; Add 1322 1322 1278;
  Mul 1278 441 1406; Mul 1295 438 1665; Add 1278 1278 1295; Sub 1322 1322 1278; Sub 1322 1468 1322;
  Mul 1322 430 1322; Mul 1278 438 1322; Add 1180 1180 1278; Mul 1278 477 1640; Mul 1295 445 1213;
  Add 1278 1278 1295; Sub 1180 1180 1278; Add 1239 1239 1180; Mul 1239 213 1239; Add 1242 1242 1239;
  Add 1570 1570 1242; Add 1457 1457 1570; Add 1679 1679 1457; Add 1416 1416 1679; Mul 1416 215 1416;
  Mul 1180 613 1204; Add 1416 1416 1180; Sub 1149 1149 1416; Mul 1416 212 1686].
Definition casadi_f0_212 : list instruction := [
  Mul 1180 242 1416; Mul 1278 624 1171; Sub 1180 1180 1278; Mul 1278 212 1512; Mul 1295 231 1278;
  Mul 1113 626 1315; Sub 1295 1295 1113; Add 1295 1440 1295; Sub 1180 1180 1295; Mul 1295 213 1391;
  Add 1113 1180 1295; Mul 1423 269 1352; Mul 1533 275 1423; Mul 1500 629 1165; Add 1505 1533 1500;
  Mul 1617 631 1285; Mul 1539 269 1463; Mul 1540 282 1539; Add 1634 1617 1540; Add 1634 1694 1634;
  Sub 1505 1505 1634; Mul 1634 213 1563; Add 1426 1505 1634; Mul 1461 323 1092; Mul 1255 329 1461;
  Mul 1106 634 1321; Add 1267 1255 1106; Mul 1585 636 1690; Mul 1399 323 1386; Mul 1172 336 1399;
  Add 1574 1585 1172; Add 1574 1493 1574; Sub 1267 1267 1574; Mul 1574 213 1674; Add 1105 1267 1574;
  Mul 1651 378 1394; Mul 1647 384 1651; Mul 1562 639 1100; Add 1658 1647 1562; Mul 1233 641 1387;
  Mul 1656 378 1652; Mul 1653 391 1656; Add 1026 1233 1653; Add 1026 1678 1026; Sub 1658 1658 1026;
  Mul 1026 213 1671; Add 1643 1658 1026; Mul 1631 430 1362; Mul 1025 438 1631; Mul 1526 644 1406;
  Add 1167 1025 1526; Mul 1326 646 1640; Mul 1166 430 1271; Mul 1552 445 1166; Add 1332 1326 1552;
  Add 1332 1231 1332; Sub 1167 1167 1332; Mul 1332 213 1467; Add 1236 1167 1332; Add 1643 1643 1236;
  Add 1105 1105 1643; Add 1426 1426 1105; Add 1113 1113 1426; Mul 1113 540 1113; Mul 1527 628 1447;
  Sub 1113 1113 1527; Mul 1527 212 1152; Mul 1545 242 1527; Mul 1135 650 1171; Sub 1545 1545 1135;
  Mul 1135 626 1134; Mul 1329 225 1278; Add 1135 1135 1329; Add 1135 1486 1135; Sub 1545 1545 1135;
  Mul 1135 213 1419; Add 1329 1545 1135; Mul 1088 631 1396; Mul 1373 271 1539; Add 1558 1088 1373;
  Sub 1558 1376 1558; Mul 1119 269 1698; Mul 1410 275 1119; Mul 1280 655 1165; Add 1496 1410 1280;
  Add 1558 1558 1496; Mul 1496 213 1102; Sub 1162 1558 1496; Mul 1601 636 1484; Mul 1200 325 1399;
  Add 1151 1601 1200; Sub 1151 1192 1151; Mul 1252 323 1330; Mul 1565 329 1252; Mul 1620 659 1321;
  Add 1191 1565 1620; Add 1151 1151 1191; Mul 1191 213 1147; Sub 1608 1151 1191; Mul 1235 641 1603;
  Mul 1202 381 1656; Add 1701 1235 1202; Sub 1701 1121 1701; Mul 1687 378 1345; Mul 1283 384 1687;
  Mul 1123 663 1100; Add 1483 1283 1123; Add 1701 1701 1483; Mul 1483 213 1438; Sub 1185 1701 1483;
  Mul 1351 646 1144; Mul 1117 434 1166; Add 1122 1351 1117; Sub 1122 1254 1122; Mul 1094 430 1347;
  Mul 1398 438 1094; Mul 1093 667 1406; Add 1616 1398 1093; Add 1122 1122 1616; Mul 1616 213 1322;
  Sub 1561 1122 1616; Add 1185 1185 1561; Add 1608 1608 1185; Add 1162 1162 1608; Add 1329 1329 1162;
  Mul 1329 544 1329; Mul 1485 653 1696; Add 1329 1329 1485; Add 1113 1113 1329; Sub 1149 1149 1113;
  Add 1449 1449 1149; Mul 1449 1 1449; Mul 1149 509 1090; Add 1449 1449 1149; Add 1531 1531 1449;
  Mul 1449 602 1465; Mul 1149 216 1128; Mul 1113 296 1089; Sub 1149 1149 1113; Mul 1113 517 1149;
  Add 1449 1449 1113; Mul 1113 670 1363; Mul 1329 215 1128; Mul 1485 296 1204; Add 1329 1329 1485;
  Mul 1485 532 1329; Add 1113 1113 1485; Add 1449 1449 1113; Mul 1084 671 1084].
Definition casadi_f0_213 : list instruction := [
  Mul 1113 216 1667; Mul 1485 255 1089; Sub 1113 1113 1485; Mul 1485 215 1250; Mul 1432 278 1204;
  Add 1485 1485 1432; Add 1113 1113 1485; Mul 1485 492 1113; Add 1084 1084 1485; Sub 1449 1449 1084;
  Mul 1084 675 1208; Mul 1485 215 1300; Mul 1432 290 1204; Add 1485 1485 1432; Mul 1432 674 1128;
  Mul 1581 216 1223; Mul 1473 274 1089; Add 1581 1581 1473; Mul 1473 296 1581; Sub 1432 1432 1473;
  Mul 1473 676 1667; Mul 1599 215 1599; Mul 1356 270 1204; Add 1599 1599 1356; Mul 1681 216 1681;
  Mul 1356 281 1089; Add 1681 1681 1356; Sub 1599 1599 1681; Mul 1681 255 1599; Add 1473 1473 1681;
  Add 1432 1432 1473; Add 1485 1485 1432; Mul 1432 602 1296; Mul 1473 523 1149; Add 1432 1432 1473;
  Mul 1473 671 1208; Mul 1681 502 1113; Add 1473 1473 1681; Add 1432 1432 1473; Sub 1432 1485 1432;
  Mul 1432 672 1432; Mul 1473 502 1432; Add 1084 1084 1473; Mul 1473 679 1495; Mul 1300 216 1300;
  Mul 1681 290 1089; Sub 1300 1300 1681; Mul 1681 676 1250; Mul 1356 278 1599; Add 1681 1681 1356;
  Mul 1356 680 1128; Mul 1303 274 1204; Mul 1223 215 1223; Sub 1303 1303 1223; Mul 1223 296 1303;
  Add 1356 1356 1223; Add 1681 1681 1356; Sub 1300 1300 1681; Mul 1681 671 1495; Mul 1356 505 1113;
  Add 1681 1681 1356; Mul 1356 670 1296; Mul 1223 523 1329; Add 1356 1356 1223; Add 1681 1681 1356;
  Add 1681 1300 1681; Mul 1681 672 1681; Mul 1356 505 1681; Add 1473 1473 1356; Sub 1084 1084 1473;
  Add 1449 1449 1084; Mul 1426 674 1426; Mul 1084 633 1581; Sub 1426 1426 1084; Mul 1162 680 1162;
  Mul 1084 657 1303; Add 1162 1162 1084; Mul 1539 275 1539; Mul 1165 631 1165; Add 1084 1539 1165;
  Mul 1473 629 1285; Mul 1356 282 1423; Add 1223 1473 1356; Mul 1259 655 1396; Mul 1140 271 1119;
  Add 1297 1259 1140; Add 1165 1165 1539; Add 1539 1297 1165; Add 1223 1223 1539; Sub 1333 1084 1223;
  Add 1356 1356 1473; Add 1140 1140 1259; Add 1084 1140 1084; Add 1356 1356 1084; Sub 1165 1165 1356;
  Sub 1333 1333 1165; Mul 1399 329 1399; Mul 1321 636 1321; Add 1165 1399 1321; Mul 1259 634 1690;
  Mul 1473 336 1461; Add 1633 1259 1473; Mul 1575 659 1484; Mul 1595 325 1252; Add 1525 1575 1595;
  Add 1321 1321 1399; Add 1399 1525 1321; Add 1633 1633 1399; Sub 1517 1165 1633; Add 1473 1473 1259;
  Add 1595 1595 1575; Add 1165 1595 1165; Add 1473 1473 1165; Sub 1321 1321 1473; Sub 1517 1517 1321;
  Mul 1656 384 1656; Mul 1100 641 1100; Add 1321 1656 1100; Mul 1575 639 1387; Mul 1259 391 1651;
  Add 1327 1575 1259; Mul 1559 663 1603; Mul 1253 381 1687; Add 1580 1559 1253; Add 1100 1100 1656;
  Add 1656 1580 1100; Add 1327 1327 1656; Sub 1524 1321 1327; Add 1259 1259 1575; Add 1253 1253 1559;
  Add 1321 1253 1321; Add 1259 1259 1321; Sub 1100 1100 1259; Sub 1524 1524 1100; Mul 1166 438 1166;
  Mul 1100 646 1406; Add 1559 1166 1100; Mul 1575 644 1640; Mul 1604 445 1631; Add 1598 1575 1604;
  Mul 1577 667 1144; Mul 1361 434 1094; Add 1571 1577 1361; Add 1100 1100 1166; Add 1166 1571 1100;
  Add 1598 1598 1166; Sub 1109 1559 1598; Add 1604 1604 1575; Add 1361 1361 1577].
Definition casadi_f0_214 : list instruction := [
  Add 1559 1361 1559; Add 1604 1604 1559; Sub 1100 1100 1604; Sub 1109 1109 1100; Add 1524 1524 1109;
  Add 1517 1517 1524; Add 1333 1333 1517; Mul 1333 676 1333; Mul 1100 687 1599; Add 1577 1333 1100;
  Sub 1162 1162 1577; Add 1426 1426 1162; Mul 1679 215 1679; Mul 1162 552 1204; Add 1679 1679 1162;
  Mul 1492 216 1492; Mul 1162 568 1089; Sub 1492 1492 1162; Sub 1679 1679 1492; Add 1426 1426 1679;
  Add 1449 1449 1426; Mul 1449 2 1449; Mul 1426 649 1506; Add 1449 1449 1426; Add 1531 1531 1449;
  Mul 1458 677 1458; Mul 1449 216 1258; Mul 1426 309 1089; Sub 1449 1449 1426; Mul 1426 215 1557;
  Mul 1679 332 1204; Add 1426 1426 1679; Add 1449 1449 1426; Mul 1426 484 1449; Add 1458 1458 1426;
  Mul 1426 706 1490; Mul 1679 216 1272; Mul 1492 349 1089; Sub 1679 1679 1492; Mul 1492 513 1679;
  Add 1426 1426 1492; Mul 1492 712 1549; Mul 1162 215 1272; Mul 1577 349 1204; Add 1162 1162 1577;
  Mul 1577 530 1162; Add 1492 1492 1577; Add 1426 1426 1492; Sub 1458 1458 1426; Mul 1426 711 1196;
  Mul 1492 706 1605; Mul 1577 519 1679; Add 1492 1492 1577; Mul 1577 677 1196; Mul 1575 494 1449;
  Add 1577 1577 1575; Add 1492 1492 1577; Mul 1577 215 1218; Mul 1575 344 1204; Add 1577 1577 1575;
  Mul 1575 714 1272; Mul 1576 216 1209; Mul 1019 328 1089; Sub 1576 1576 1019; Mul 1019 349 1576;
  Add 1575 1575 1019; Mul 1019 716 1258; Mul 1375 216 1375; Mul 1664 335 1089; Sub 1375 1375 1664;
  Mul 1215 215 1215; Mul 1664 324 1204; Add 1215 1215 1664; Add 1375 1375 1215; Mul 1215 309 1375;
  Add 1019 1019 1215; Add 1575 1575 1019; Add 1577 1577 1575; Sub 1492 1492 1577; Mul 1492 156 1492;
  Mul 1575 494 1492; Add 1426 1426 1575; Mul 1575 719 1289; Mul 1019 716 1557; Mul 1215 332 1375;
  Add 1019 1019 1215; Mul 1215 718 1272; Mul 1209 215 1209; Mul 1664 328 1204; Add 1209 1209 1664;
  Mul 1664 349 1209; Add 1215 1215 1664; Add 1019 1019 1215; Mul 1218 216 1218; Mul 1215 344 1089;
  Sub 1218 1218 1215; Sub 1019 1019 1218; Mul 1218 677 1289; Mul 1215 497 1449; Add 1218 1218 1215;
  Mul 1215 712 1605; Mul 1664 519 1162; Add 1215 1215 1664; Add 1218 1218 1215; Sub 1218 1019 1218;
  Mul 1218 156 1218; Mul 1215 497 1218; Add 1575 1575 1215; Sub 1426 1426 1575; Add 1458 1458 1426;
  Mul 1517 716 1517; Mul 1426 694 1375; Add 1575 1517 1426; Mul 1608 718 1608; Mul 1215 661 1209;
  Add 1608 1608 1215; Sub 1575 1575 1608; Mul 1105 714 1105; Mul 1608 638 1576; Add 1105 1105 1608;
  Sub 1575 1575 1105; Mul 1103 216 1103; Mul 1105 582 1089; Sub 1103 1103 1105; Mul 1457 215 1457;
  Mul 1105 618 1204; Add 1457 1457 1105; Sub 1103 1103 1457; Add 1575 1575 1103; Add 1458 1458 1575;
  Mul 1458 3 1458; Mul 1575 681 1691; Add 1458 1458 1575; Add 1531 1531 1458; Mul 1458 715 1504;
  Mul 1575 327 1311; Mul 1103 405 1481; Add 1575 1575 1103; Mul 1103 318 1606; Mul 1457 387 1403;
  Add 1103 1103 1457; Sub 1575 1575 1103; Mul 1103 510 1575; Add 1458 1458 1103; Mul 1103 721 1510;
  Mul 1457 318 1501; Mul 1105 363 1403; Add 1457 1457 1105; Mul 1105 310 1311].
Definition casadi_f0_215 : list instruction := [
  Mul 1608 405 1672; Add 1105 1105 1608; Sub 1457 1457 1105; Mul 1105 528 1457; Add 1103 1103 1105;
  Add 1458 1458 1103; Mul 1103 722 1542; Mul 1105 310 1606; Mul 1608 387 1672; Add 1105 1105 1608;
  Mul 1608 327 1501; Mul 1215 363 1481; Add 1608 1608 1215; Sub 1105 1105 1608; Mul 1608 479 1105;
  Add 1103 1103 1608; Add 1458 1458 1103; Mul 1103 726 1443; Mul 1608 318 1367; Mul 1215 404 1403;
  Add 1608 1608 1215; Mul 1215 310 1193; Mul 1664 399 1672; Add 1215 1215 1664; Sub 1608 1608 1215;
  Mul 1215 725 1311; Mul 1664 327 1471; Mul 1564 383 1481; Add 1664 1664 1564; Mul 1564 318 1609;
  Mul 1137 379 1403; Add 1564 1564 1137; Sub 1664 1664 1564; Mul 1564 405 1664; Add 1215 1215 1564;
  Mul 1564 727 1501; Mul 1609 310 1609; Mul 1137 379 1672; Add 1609 1609 1137; Mul 1137 327 1625;
  Mul 1269 390 1481; Add 1137 1137 1269; Sub 1609 1609 1137; Mul 1137 363 1609; Add 1564 1564 1137;
  Sub 1215 1215 1564; Add 1608 1608 1215; Mul 1215 715 1642; Mul 1564 515 1575; Add 1215 1215 1564;
  Mul 1564 722 1443; Mul 1137 486 1105; Add 1564 1564 1137; Sub 1215 1215 1564; Sub 1215 1608 1215;
  Mul 1215 723 1215; Mul 1564 486 1215; Add 1103 1103 1564; Mul 1564 730 1474; Mul 1193 327 1193;
  Mul 1137 399 1481; Add 1193 1193 1137; Mul 1137 318 1636; Mul 1269 408 1403; Add 1137 1137 1269;
  Sub 1193 1193 1137; Mul 1137 727 1606; Mul 1269 387 1609; Add 1137 1137 1269; Mul 1269 731 1311;
  Mul 1625 318 1625; Mul 1205 390 1403; Add 1625 1625 1205; Mul 1471 310 1471; Mul 1205 383 1672;
  Add 1471 1471 1205; Sub 1625 1625 1471; Mul 1471 405 1625; Add 1269 1269 1471; Sub 1137 1137 1269;
  Add 1193 1193 1137; Mul 1137 722 1474; Mul 1269 489 1105; Add 1137 1137 1269; Mul 1269 721 1642;
  Mul 1471 515 1457; Add 1269 1269 1471; Sub 1137 1137 1269; Sub 1137 1193 1137; Mul 1137 723 1137;
  Mul 1269 489 1137; Add 1564 1564 1269; Sub 1103 1103 1564; Add 1458 1458 1103; Mul 1103 725 1643;
  Mul 1564 643 1664; Add 1103 1103 1564; Mul 1564 731 1185; Mul 1269 665 1625; Add 1564 1564 1269;
  Mul 1269 727 1524; Mul 1471 701 1609; Add 1205 1269 1471; Add 1564 1564 1205; Add 1103 1103 1564;
  Mul 1564 310 1570; Mul 1205 620 1672; Add 1564 1564 1205; Mul 1205 327 1279; Mul 1219 595 1481;
  Add 1205 1205 1219; Mul 1268 318 1268; Mul 1219 395 1403; Add 1452 1268 1219; Add 1205 1205 1452;
  Add 1564 1564 1205; Sub 1103 1103 1564; Add 1458 1458 1103; Mul 1103 4 1458; Mul 1564 720 1101;
  Add 1103 1103 1564; Add 1531 1531 1103; Mul 1103 728 1111; Mul 1564 372 1677; Mul 1205 459 1307;
  Add 1564 1564 1205; Mul 1205 369 1665; Mul 1452 441 1587; Add 1205 1205 1452; Sub 1564 1564 1205;
  Mul 1205 443 1564; Add 1103 1103 1205; Mul 1205 733 1251; Mul 1452 369 1225; Mul 1424 417 1587;
  Add 1452 1452 1424; Mul 1424 358 1677; Mul 1466 459 1470; Add 1424 1424 1466; Sub 1452 1452 1424;
  Mul 1424 426 1452; Add 1205 1205 1424; Add 1103 1103 1205; Mul 1205 734 1313; Mul 1424 358 1665;
  Mul 1466 441 1470; Add 1424 1424 1466; Mul 1466 372 1225; Mul 1413 417 1307].
Definition casadi_f0_216 : list instruction := [
  Add 1466 1466 1413; Sub 1424 1424 1466; Mul 1466 478 1424; Add 1205 1205 1466; Add 1103 1103 1205;
  Mul 1205 735 1640; Mul 1466 369 1468; Mul 1413 458 1587; Add 1466 1466 1413; Mul 1413 358 1324;
  Mul 1578 451 1470; Add 1413 1413 1578; Sub 1466 1466 1413; Mul 1413 736 1677; Mul 1578 372 1207;
  Mul 1354 437 1307; Add 1578 1578 1354; Mul 1354 369 1476; Mul 1291 432 1587; Add 1354 1354 1291;
  Sub 1578 1578 1354; Mul 1354 459 1578; Add 1413 1413 1354; Mul 1354 738 1225; Mul 1476 358 1476;
  Mul 1291 432 1470; Add 1476 1476 1291; Mul 1291 372 1507; Mul 1688 444 1307; Add 1291 1291 1688;
  Sub 1476 1476 1291; Mul 1291 417 1476; Add 1354 1354 1291; Sub 1413 1413 1354; Add 1466 1466 1413;
  Mul 1413 728 1406; Mul 1354 438 1564; Add 1413 1413 1354; Mul 1354 734 1640; Mul 1291 445 1424;
  Add 1354 1354 1291; Sub 1413 1413 1354; Sub 1466 1466 1413; Mul 1466 430 1466; Mul 1413 445 1466;
  Add 1205 1205 1413; Mul 1413 739 1144; Mul 1324 372 1324; Mul 1354 451 1307; Add 1324 1324 1354;
  Mul 1354 369 1408; Mul 1291 462 1587; Add 1354 1354 1291; Sub 1324 1324 1354; Mul 1354 738 1665;
  Mul 1291 441 1476; Add 1354 1354 1291; Mul 1291 741 1677; Mul 1507 369 1507; Mul 1688 444 1587;
  Add 1507 1507 1688; Mul 1207 358 1207; Mul 1688 437 1470; Add 1207 1207 1688; Sub 1507 1507 1207;
  Mul 1207 459 1507; Add 1291 1291 1207; Sub 1354 1354 1291; Add 1324 1324 1354; Mul 1354 734 1144;
  Mul 1291 434 1424; Add 1354 1354 1291; Mul 1291 733 1406; Mul 1207 438 1452; Add 1291 1291 1207;
  Sub 1354 1354 1291; Sub 1324 1324 1354; Mul 1324 430 1324; Mul 1354 434 1324; Add 1413 1413 1354;
  Sub 1205 1205 1413; Add 1103 1103 1205; Mul 1205 736 1236; Mul 1413 648 1578; Add 1205 1205 1413;
  Mul 1413 741 1561; Mul 1354 669 1507; Add 1413 1413 1354; Mul 1354 738 1109; Mul 1291 708 1476;
  Add 1207 1354 1291; Add 1413 1413 1207; Add 1205 1205 1413; Mul 1413 358 1242; Mul 1207 622 1470;
  Add 1413 1413 1207; Mul 1207 372 1314; Mul 1688 608 1307; Add 1207 1207 1688; Mul 1124 369 1124;
  Mul 1688 449 1587; Add 1429 1124 1688; Add 1207 1207 1429; Add 1413 1413 1207; Sub 1205 1205 1413;
  Add 1103 1103 1205; Mul 1205 5 1103; Mul 1413 732 1349; Add 1205 1205 1413; Add 1531 1531 1205;
  Mul 1205 286 1374; Mul 1413 212 1205; Mul 1413 107 1413; Mul 1207 745 1459; Mul 1429 737 1459;
  Mul 1129 9 1205; Add 1429 1429 1129; Mul 1129 743 1086; Mul 1302 286 1568; Mul 1462 8 1302;
  Add 1129 1129 1462; Sub 1429 1429 1129; Mul 1129 269 1429; Mul 1462 81 1129; Mul 1407 746 1042;
  Mul 1158 743 1459; Mul 1075 9 1302; Sub 1158 1158 1075; Mul 1205 8 1205; Mul 1075 737 1086;
  Sub 1205 1205 1075; Sub 1158 1158 1205; Mul 1205 53 1158; Add 1407 1407 1205; Mul 1205 66 1429;
  Mul 1075 742 1621; Sub 1205 1205 1075; Add 1407 1407 1205; Mul 1205 323 1407; Mul 1075 47 1205;
  Mul 1034 378 1407; Mul 1695 24 1034; Mul 1074 752 1145; Mul 1247 66 1158; Mul 1439 746 1621;
  Sub 1247 1247 1439; Mul 1439 742 1042; Mul 1429 53 1429; Add 1439 1439 1429].
Definition casadi_f0_217 : list instruction := [
  Sub 1247 1247 1439; Mul 1439 35 1247; Add 1074 1074 1439; Mul 1439 378 1074; Mul 1429 31 1439;
  Sub 1695 1695 1429; Mul 1429 753 1692; Mul 1226 15 1074; Add 1429 1429 1226; Mul 1226 16 1407;
  Mul 1684 747 1021; Sub 1226 1226 1684; Add 1429 1429 1226; Mul 1429 430 1429; Mul 1226 26 1429;
  Mul 1074 16 1074; Mul 1684 753 1021; Sub 1074 1074 1684; Mul 1684 747 1692; Mul 1407 15 1407;
  Add 1684 1684 1407; Sub 1074 1074 1684; Mul 1074 430 1074; Mul 1684 28 1074; Sub 1226 1226 1684;
  Mul 1684 16 1429; Mul 1407 755 1021; Sub 1684 1684 1407; Mul 1407 757 1692; Mul 1060 15 1074;
  Add 1407 1407 1060; Sub 1684 1684 1407; Mul 1407 25 1684; Mul 1060 16 1074; Mul 1099 757 1021;
  Sub 1060 1060 1099; Mul 1099 755 1692; Mul 1055 15 1429; Add 1099 1099 1055; Add 1060 1060 1099;
  Mul 1099 32 1060; Sub 1407 1407 1099; Add 1407 1226 1407; Add 1695 1695 1407; Mul 1407 19 1695;
  Mul 1099 751 1186; Sub 1407 1407 1099; Mul 1099 763 1145; Mul 1055 19 1247; Mul 1047 752 1186;
  Sub 1055 1055 1047; Mul 1047 378 1055; Mul 1016 31 1047; Mul 1079 380 1034; Sub 1016 1016 1079;
  Mul 1055 430 1055; Mul 1079 28 1055; Mul 1429 433 1429; Sub 1079 1079 1429; Mul 1429 16 1079;
  Mul 1613 764 1021; Sub 1429 1429 1613; Mul 1613 766 1692; Mul 1074 433 1074; Mul 1697 26 1055;
  Sub 1074 1074 1697; Mul 1697 15 1074; Add 1613 1613 1697; Add 1429 1429 1613; Mul 1613 32 1055;
  Mul 1697 198 1684; Sub 1613 1613 1697; Add 1429 1429 1613; Add 1016 1016 1429; Mul 1429 35 1016;
  Add 1099 1099 1429; Add 1407 1407 1099; Add 1034 1034 1684; Mul 1684 48 1034; Add 1099 1439 1060;
  Mul 1429 19 1099; Mul 1613 765 1186; Sub 1429 1429 1613; Mul 1613 768 1145; Add 1697 1047 1055;
  Mul 1702 35 1697; Add 1613 1613 1702; Sub 1429 1429 1613; Mul 1613 55 1429; Sub 1684 1684 1613;
  Add 1407 1407 1684; Add 1075 1075 1407; Mul 1407 66 1075; Mul 1684 749 1621; Sub 1407 1407 1684;
  Mul 1684 762 1042; Mul 1439 380 1439; Mul 1047 24 1047; Sub 1439 1439 1047; Mul 1074 16 1074;
  Mul 1021 766 1021; Sub 1074 1074 1021; Mul 1692 764 1692; Mul 1079 15 1079; Add 1692 1692 1079;
  Sub 1074 1074 1692; Mul 1060 198 1060; Mul 1055 25 1055; Sub 1060 1060 1055; Add 1074 1074 1060;
  Add 1439 1439 1074; Mul 1074 62 1429; Mul 1697 19 1697; Mul 1060 768 1186; Sub 1697 1697 1060;
  Mul 1060 765 1145; Mul 1099 35 1099; Add 1060 1060 1099; Add 1697 1697 1060; Mul 1060 48 1697;
  Sub 1074 1074 1060; Add 1074 1439 1074; Mul 1247 323 1247; Mul 1060 47 1247; Sub 1074 1074 1060;
  Mul 1060 53 1074; Add 1684 1684 1060; Add 1407 1407 1684; Mul 1684 86 1429; Sub 1407 1407 1684;
  Add 1462 1462 1407; Mul 1407 9 1462; Add 1207 1207 1407; Mul 1074 66 1074; Mul 1407 762 1621;
  Sub 1074 1074 1407; Mul 1407 749 1042; Mul 1075 53 1075; Add 1407 1407 1075; Sub 1074 1074 1407;
  Mul 1407 91 1429; Add 1074 1074 1407; Mul 1158 269 1158; Mul 1407 81 1158; Sub 1074 1074 1407;
  Mul 1407 8 1074; Mul 1075 758 1086; Sub 1407 1407 1075; Add 1207 1207 1407].
Definition casadi_f0_218 : list instruction := [
  Mul 1429 102 1429; Add 1407 1247 1697; Mul 1075 66 1407; Mul 1684 770 1621; Sub 1075 1075 1684;
  Mul 1684 772 1042; Add 1060 1205 1034; Mul 1099 53 1060; Add 1684 1684 1099; Add 1075 1075 1684;
  Add 1684 1158 1075; Mul 1099 8 1684; Mul 1055 773 1086; Sub 1099 1099 1055; Mul 1055 776 1459;
  Mul 1060 66 1060; Mul 1621 772 1621; Sub 1060 1060 1621; Mul 1042 770 1042; Mul 1407 53 1407;
  Add 1042 1042 1407; Sub 1060 1060 1042; Add 1042 1129 1060; Mul 1407 9 1042; Add 1055 1055 1407;
  Sub 1099 1099 1055; Mul 1099 108 1099; Sub 1429 1429 1099; Add 1207 1207 1429; Add 1413 1413 1207;
  Mul 1413 114 1413; Mul 1568 740 1568; Sub 1413 1413 1568; Mul 1374 774 1374; Mul 1462 8 1462;
  Mul 1568 745 1086; Sub 1462 1462 1568; Mul 1568 758 1459; Mul 1074 9 1074; Add 1568 1568 1074;
  Sub 1462 1462 1568; Mul 1459 773 1459; Mul 1684 9 1684; Add 1459 1459 1684; Mul 1042 8 1042;
  Mul 1086 776 1086; Sub 1042 1042 1086; Add 1459 1459 1042; Mul 1042 108 1459; Add 1462 1462 1042;
  Mul 1302 212 1302; Mul 1042 107 1302; Sub 1462 1462 1042; Mul 1462 113 1462; Add 1374 1374 1462;
  Sub 1413 1413 1374; Add 1531 1531 1413; Mul 1413 210 1531; Sub 1077 1077 1413; Div 1413 1560 92;
  Mul 1374 1069 1639; Sub 1413 1413 1374; Mul 1374 779 1413; Add 1344 1344 1610; Add 1409 1409 1377;
  Sub 1344 1344 1409; Add 1635 1635 1163; Add 1693 1693 1234; Sub 1635 1635 1693; Add 1360 1360 1635;
  Sub 1344 1344 1360; Add 1344 1344 1592; Add 1589 1589 1487; Add 1365 1365 1456; Sub 1589 1589 1365;
  Add 1032 1032 1475; Add 1393 1393 1091; Add 1032 1032 1393; Add 1263 1263 1222; Add 1338 1338 1450;
  Sub 1263 1263 1338; Add 1032 1032 1263; Sub 1589 1589 1032; Add 1589 1589 1538; Add 1265 1265 1369;
  Add 1266 1266 1602; Sub 1265 1265 1266; Add 1441 1441 1228; Add 1116 1116 1497; Add 1441 1441 1116;
  Add 1411 1411 1594; Add 1593 1593 1448; Sub 1411 1411 1593; Add 1441 1441 1411; Sub 1265 1265 1441;
  Add 1265 1265 1555; Add 1522 1522 1190; Add 1189 1189 1353; Sub 1522 1522 1189; Add 1108 1108 1317;
  Add 1597 1597 1622; Add 1108 1108 1597; Add 1464 1464 1488; Add 1150 1150 1395; Sub 1464 1464 1150;
  Add 1108 1108 1464; Sub 1522 1522 1108; Add 1522 1522 1370; Add 1544 1544 1649; Add 1309 1309 1661;
  Sub 1544 1544 1309; Add 1402 1402 1154; Add 1221 1221 1425; Add 1402 1402 1221; Add 1551 1551 1454;
  Add 1168 1168 1523; Sub 1551 1551 1168; Add 1402 1402 1551; Sub 1544 1544 1402; Add 1544 1544 1417;
  Add 1522 1522 1544; Add 1265 1265 1522; Add 1589 1589 1265; Add 1344 1344 1589; Mul 1344 216 1344;
  Mul 1417 780 1089; Sub 1344 1344 1417; Mul 1417 781 1204; Add 1062 1062 1422; Add 1257 1257 1618;
  Sub 1062 1062 1257; Sub 1556 1556 1062; Add 1460 1460 1700; Add 1274 1274 1532; Sub 1460 1460 1274;
  Add 1556 1556 1460; Sub 1556 1556 1173; Add 1246 1246 1412; Add 1143 1143 1175; Sub 1246 1246 1143;
  Add 1276 1276 1176; Add 1187 1187 1670; Add 1276 1276 1187; Add 1382 1382 1650; Add 1132 1132 1203;
  Sub 1382 1382 1132; Add 1276 1276 1382; Sub 1246 1246 1276; Sub 1246 1246 1666].
Definition casadi_f0_219 : list instruction := [
  Add 1400 1400 1256; Add 1583 1583 1624; Sub 1400 1400 1583; Add 1627 1627 1323; Add 1183 1183 1335;
  Add 1627 1627 1183; Add 1112 1112 1388; Add 1141 1141 1586; Sub 1112 1112 1141; Add 1627 1627 1112;
  Sub 1400 1400 1627; Sub 1400 1400 1646; Add 1645 1645 1096; Add 1201 1201 1238; Sub 1645 1645 1201;
  Add 1343 1343 1348; Add 1383 1383 1298; Add 1343 1343 1383; Add 1655 1655 1420; Add 1248 1248 1230;
  Sub 1655 1655 1248; Add 1343 1343 1655; Sub 1645 1645 1343; Sub 1645 1645 1325; Add 1582 1582 1529;
  Add 1127 1127 1087; Sub 1582 1582 1127; Add 1436 1436 1519; Add 1364 1364 1229; Add 1436 1436 1364;
  Add 1392 1392 1537; Add 1628 1628 1319; Sub 1392 1392 1628; Add 1436 1436 1392; Sub 1582 1582 1436;
  Sub 1582 1582 1239; Add 1645 1645 1582; Add 1400 1400 1645; Add 1246 1246 1400; Add 1556 1556 1246;
  Mul 1556 215 1556; Add 1417 1417 1556; Sub 1344 1344 1417; Sub 1180 1180 1295; Sub 1505 1505 1634;
  Sub 1267 1267 1574; Sub 1658 1658 1026; Sub 1167 1167 1332; Add 1658 1658 1167; Add 1267 1267 1658;
  Add 1505 1505 1267; Add 1180 1180 1505; Mul 1180 540 1180; Mul 1295 625 1447; Sub 1180 1180 1295;
  Mul 1295 651 1696; Sub 1545 1545 1135; Add 1558 1558 1496; Add 1151 1151 1191; Add 1701 1701 1483;
  Add 1122 1122 1616; Add 1701 1701 1122; Add 1151 1151 1701; Add 1558 1558 1151; Add 1545 1545 1558;
  Mul 1545 544 1545; Add 1295 1295 1545; Add 1180 1180 1295; Sub 1344 1344 1180; Mul 1344 0 1344;
  Mul 1180 23 1038; Add 1344 1344 1180; Mul 1139 508 1139; Mul 1180 534 1434; Add 1139 1139 1180;
  Add 1673 1673 1022; Mul 1341 482 1341; Mul 1316 511 1316; Add 1341 1341 1316; Sub 1673 1673 1341;
  Add 1509 1509 1673; Mul 1669 490 1669; Mul 1644 514 1644; Add 1669 1669 1644; Sub 1509 1509 1669;
  Add 1130 1130 1509; Mul 1194 498 1194; Mul 1199 518 1199; Add 1194 1194 1199; Sub 1130 1130 1194;
  Add 1550 1550 1130; Mul 1554 522 1554; Mul 1654 506 1654; Sub 1554 1554 1654; Sub 1550 1550 1554;
  Mul 1554 526 1550; Mul 1654 784 1566; Add 1554 1554 1654; Add 1499 1499 1662; Mul 1358 1304 1358;
  Add 1181 1181 1358; Mul 1181 20 1181; Add 1499 1499 1181; Add 1513 1513 1499; Mul 1142 1153 1142;
  Add 1477 1477 1142; Mul 1477 37 1477; Add 1513 1513 1477; Add 1648 1648 1513; Mul 1292 1212 1292;
  Add 1308 1308 1292; Mul 1308 80 1308; Add 1648 1648 1308; Add 1177 1177 1648; Mul 1337 1293 1337;
  Add 1017 1017 1337; Mul 1017 100 1017; Sub 1177 1177 1017; Mul 1177 536 1177; Mul 1017 496 1320;
  Add 1177 1177 1017; Add 1554 1554 1177; Sub 1139 1139 1554; Mul 1554 546 1536; Mul 1177 538 1699;
  Add 1554 1554 1177; Mul 1177 791 1305; Mul 1179 215 1179; Mul 1017 222 1204; Add 1179 1179 1017;
  Mul 1515 216 1515; Mul 1017 229 1089; Sub 1515 1515 1017; Sub 1179 1179 1515; Mul 1515 540 1489;
  Mul 1017 227 1447; Sub 1515 1515 1017; Mul 1017 544 1372; Mul 1308 219 1696; Add 1017 1017 1308;
  Sub 1515 1515 1017; Add 1179 1179 1515; Mul 1515 526 1371; Mul 1017 543 1566; Add 1515 1515 1017;
  Mul 1305 536 1305; Mul 1017 537 1320; Add 1305 1305 1017; Sub 1515 1515 1305].
Definition casadi_f0_220 : list instruction := [
  Sub 1515 1179 1515; Mul 1515 141 1515; Mul 1305 537 1515; Add 1177 1177 1305; Sub 1554 1554 1177;
  Add 1139 1139 1554; Mul 1554 556 1512; Mul 1415 560 1415; Add 1177 1554 1415; Sub 1514 1177 1514;
  Sub 1161 1081 1161; Sub 1469 1098 1469; Add 1161 1161 1469; Add 1415 1415 1554; Sub 1301 1301 1415;
  Add 1161 1161 1301; Sub 1514 1514 1161; Mul 1161 570 1463; Mul 1491 574 1491; Add 1301 1161 1491;
  Sub 1114 1301 1114; Sub 1600 1600 1418; Sub 1579 1579 1445; Add 1600 1600 1579; Add 1491 1491 1161;
  Sub 1188 1188 1491; Add 1600 1600 1188; Sub 1114 1114 1600; Mul 1600 584 1386; Mul 1478 588 1478;
  Add 1188 1600 1478; Sub 1498 1188 1498; Sub 1511 1511 1146; Sub 1118 1118 1036; Add 1511 1511 1118;
  Add 1478 1478 1600; Sub 1131 1131 1478; Add 1511 1511 1131; Sub 1498 1498 1511; Mul 1511 597 1652;
  Mul 1340 601 1340; Add 1131 1511 1340; Sub 1170 1131 1170; Sub 1097 1097 1435; Sub 1520 1520 1584;
  Add 1097 1097 1520; Add 1340 1340 1511; Sub 1682 1682 1340; Add 1097 1097 1682; Sub 1170 1170 1097;
  Mul 1097 610 1271; Mul 1071 614 1071; Add 1682 1097 1071; Sub 1502 1682 1502; Sub 1350 1350 1355;
  Sub 1261 1261 1120; Add 1350 1350 1261; Add 1071 1071 1097; Sub 1216 1216 1071; Add 1350 1350 1216;
  Sub 1502 1502 1350; Add 1170 1170 1502; Add 1498 1498 1170; Add 1114 1114 1498; Add 1514 1514 1114;
  Mul 1514 216 1514; Mul 1350 251 1089; Sub 1514 1514 1350; Mul 1350 230 1134; Mul 1486 225 1486;
  Add 1216 1350 1486; Mul 1440 231 1440; Mul 1097 223 1315; Sub 1440 1440 1097; Sub 1216 1216 1440;
  Mul 1241 560 1241; Mul 1097 553 1512; Add 1261 1241 1097; Mul 1133 244 1133; Mul 1152 248 1152;
  Add 1120 1133 1152; Sub 1261 1261 1120; Sub 1216 1216 1261; Mul 1512 558 1512; Mul 1503 560 1503;
  Add 1261 1512 1503; Mul 1686 243 1686; Mul 1548 249 1548; Add 1120 1686 1548; Sub 1261 1261 1120;
  Add 1216 1216 1261; Mul 1641 219 1641; Mul 1372 239 1372; Add 1641 1641 1372; Mul 1125 227 1125;
  Mul 1489 246 1489; Add 1125 1125 1489; Add 1641 1641 1125; Mul 1310 467 1310; Mul 1051 525 1051;
  Sub 1310 1310 1051; Add 1641 1641 1310; Mul 1391 231 1391; Mul 1310 559 1315; Sub 1391 1391 1310;
  Mul 1310 616 1134; Mul 1419 225 1419; Add 1310 1310 1419; Add 1391 1391 1310; Add 1641 1641 1391;
  Mul 1641 213 1641; Sub 1216 1216 1641; Mul 1391 572 1463; Mul 1660 574 1660; Add 1310 1391 1660;
  Mul 1352 284 1352; Mul 1206 258 1206; Add 1419 1352 1206; Sub 1310 1310 1419; Mul 1419 297 1396;
  Mul 1051 271 1376; Add 1125 1419 1051; Mul 1489 282 1694; Mul 1372 300 1285; Add 1261 1489 1372;
  Add 1125 1125 1261; Mul 1346 574 1346; Mul 1463 567 1463; Add 1261 1346 1463; Mul 1494 279 1494;
  Mul 1698 276 1698; Add 1120 1494 1698; Sub 1261 1261 1120; Add 1125 1125 1261; Sub 1310 1310 1125;
  Mul 1668 255 1668; Mul 1125 280 1667; Add 1668 1668 1125; Mul 1535 278 1535; Mul 1125 266 1250;
  Add 1535 1535 1125; Add 1668 1668 1535; Mul 1237 296 1237; Mul 1128 472 1128; Add 1237 1237 1128;
  Add 1668 1668 1237; Mul 1237 573 1285; Mul 1563 282 1563; Add 1237 1237 1563].
Definition casadi_f0_221 : list instruction := [
  Mul 1563 617 1396; Mul 1102 271 1102; Add 1563 1563 1102; Sub 1237 1237 1563; Add 1668 1668 1237;
  Mul 1668 213 1668; Sub 1310 1310 1668; Mul 1237 586 1386; Mul 1156 588 1156; Add 1563 1237 1156;
  Mul 1092 338 1092; Mul 1433 312 1433; Add 1102 1092 1433; Sub 1563 1563 1102; Mul 1102 351 1484;
  Mul 1128 325 1192; Add 1535 1102 1128; Mul 1125 336 1493; Mul 1261 354 1690; Add 1120 1125 1261;
  Add 1535 1535 1120; Mul 1018 588 1018; Mul 1386 581 1386; Add 1120 1018 1386; Mul 1115 333 1115;
  Mul 1330 330 1330; Add 1355 1115 1330; Sub 1120 1120 1355; Add 1535 1535 1120; Sub 1563 1563 1535;
  Mul 1384 309 1384; Mul 1535 334 1258; Add 1384 1384 1535; Mul 1378 332 1378; Mul 1535 320 1557;
  Add 1378 1378 1535; Add 1384 1384 1378; Mul 1164 349 1164; Mul 1272 474 1272; Add 1164 1164 1272;
  Add 1384 1384 1164; Mul 1164 587 1690; Mul 1674 336 1674; Add 1164 1164 1674; Mul 1674 619 1484;
  Mul 1147 325 1147; Add 1674 1674 1147; Sub 1164 1164 1674; Add 1384 1384 1164; Mul 1384 213 1384;
  Sub 1563 1563 1384; Mul 1164 599 1652; Mul 1318 601 1318; Add 1674 1164 1318; Mul 1394 393 1394;
  Mul 1444 366 1444; Add 1147 1394 1444; Sub 1674 1674 1147; Mul 1147 406 1603; Mul 1272 381 1121;
  Add 1378 1147 1272; Mul 1535 391 1678; Mul 1120 409 1387; Add 1355 1535 1120; Add 1378 1378 1355;
  Mul 1284 601 1284; Mul 1652 594 1652; Add 1355 1284 1652; Mul 1169 388 1169; Mul 1345 385 1345;
  Add 1511 1169 1345; Sub 1355 1355 1511; Add 1378 1378 1355; Sub 1674 1674 1378; Mul 1455 363 1455;
  Mul 1378 389 1501; Add 1455 1455 1378; Mul 1195 387 1195; Mul 1378 374 1606; Add 1195 1195 1378;
  Add 1455 1455 1195; Mul 1659 405 1659; Mul 1311 476 1311; Add 1659 1659 1311; Add 1455 1455 1659;
  Mul 1659 600 1387; Mul 1671 391 1671; Add 1659 1659 1671; Mul 1671 621 1603; Mul 1438 381 1438;
  Add 1671 1671 1438; Sub 1659 1659 1671; Add 1455 1455 1659; Mul 1455 213 1455; Sub 1674 1674 1455;
  Mul 1659 612 1271; Mul 1224 614 1224; Add 1671 1659 1224; Mul 1362 447 1362; Mul 1573 420 1573;
  Add 1438 1362 1573; Sub 1671 1671 1438; Mul 1438 460 1144; Mul 1311 434 1254; Add 1195 1438 1311;
  Mul 1378 445 1231; Mul 1355 463 1640; Add 1511 1378 1355; Add 1195 1195 1511; Mul 1339 614 1339;
  Mul 1271 607 1271; Add 1511 1339 1271; Mul 1480 442 1480; Mul 1347 439 1347; Add 1520 1480 1347;
  Sub 1511 1511 1520; Add 1195 1195 1511; Sub 1671 1671 1195; Mul 1195 417 1111; Mul 1511 443 1225;
  Add 1195 1195 1511; Mul 1511 441 1251; Mul 1520 426 1665; Add 1511 1511 1520; Add 1195 1195 1511;
  Mul 1511 459 1313; Mul 1677 478 1677; Add 1511 1511 1677; Add 1195 1195 1511; Mul 1511 611 1640;
  Mul 1467 445 1467; Add 1511 1511 1467; Mul 1467 623 1144; Mul 1322 434 1322; Add 1467 1467 1322;
  Sub 1511 1511 1467; Add 1195 1195 1511; Mul 1195 213 1195; Sub 1671 1671 1195; Add 1674 1674 1671;
  Add 1563 1563 1674; Add 1310 1310 1563; Add 1216 1216 1310; Mul 1216 215 1216; Mul 1511 470 1204;
  Add 1216 1216 1511; Sub 1514 1514 1216; Mul 1216 225 1416; Mul 1511 624 1134].
Definition casadi_f0_222 : list instruction := [
  Add 1467 1216 1511; Mul 1322 231 1527; Mul 1677 650 1315; Sub 1322 1322 1677; Sub 1467 1467 1322;
  Mul 1442 213 1442; Add 1677 1467 1442; Mul 1285 655 1285; Mul 1119 282 1119; Add 1520 1285 1119;
  Sub 1520 1244 1520; Mul 1423 271 1423; Mul 1396 629 1396; Add 1584 1423 1396; Add 1520 1520 1584;
  Mul 1030 213 1030; Sub 1584 1520 1030; Mul 1690 659 1690; Mul 1252 336 1252; Add 1435 1690 1252;
  Sub 1435 1359 1435; Mul 1461 325 1461; Mul 1484 634 1484; Add 1600 1461 1484; Add 1435 1435 1600;
  Mul 1427 213 1427; Sub 1600 1435 1427; Mul 1387 663 1387; Mul 1687 391 1687; Add 1118 1387 1687;
  Sub 1118 1547 1118; Mul 1651 381 1651; Mul 1603 639 1603; Add 1036 1651 1603; Add 1118 1118 1036;
  Mul 1607 213 1607; Sub 1036 1118 1607; Mul 1146 667 1640; Mul 1094 445 1094; Add 1161 1146 1094;
  Sub 1161 1663 1161; Mul 1631 434 1631; Mul 1579 644 1144; Add 1445 1631 1579; Add 1161 1161 1445;
  Mul 1213 213 1213; Sub 1445 1161 1213; Add 1036 1036 1445; Add 1600 1600 1036; Add 1584 1584 1600;
  Add 1677 1677 1584; Mul 1677 540 1677; Mul 1418 250 1447; Sub 1677 1677 1418; Mul 1527 225 1527;
  Mul 1134 650 1134; Add 1418 1527 1134; Mul 1416 231 1416; Mul 1315 624 1315; Sub 1416 1416 1315;
  Add 1134 1134 1527; Mul 1278 242 1278; Mul 1171 626 1171; Sub 1278 1278 1171; Add 1171 1134 1278;
  Add 1527 1416 1171; Sub 1527 1418 1527; Add 1418 1418 1278; Add 1416 1416 1418; Sub 1134 1134 1416;
  Sub 1527 1527 1134; Sub 1140 1140 1223; Sub 1297 1297 1356; Sub 1140 1140 1297; Sub 1595 1595 1633;
  Sub 1525 1525 1473; Sub 1595 1595 1525; Sub 1253 1253 1327; Sub 1580 1580 1259; Sub 1253 1253 1580;
  Sub 1361 1361 1598; Sub 1571 1571 1604; Sub 1361 1361 1571; Add 1253 1253 1361; Add 1595 1595 1253;
  Add 1140 1140 1595; Add 1527 1527 1140; Mul 1571 544 1527; Mul 1604 806 1696; Add 1571 1571 1604;
  Add 1677 1677 1571; Sub 1514 1514 1677; Add 1139 1139 1514; Mul 1139 216 1139; Mul 1514 652 1089;
  Sub 1139 1139 1514; Mul 1514 804 1204; Mul 1182 508 1182; Mul 1677 521 1434; Add 1182 1182 1677;
  Add 1052 1052 1358; Mul 1052 20 1052; Add 1431 1431 1277; Sub 1052 1052 1431; Sub 1270 1052 1270;
  Add 1588 1588 1142; Mul 1588 37 1588; Add 1270 1270 1588; Sub 1528 1270 1528; Add 1110 1110 1292;
  Mul 1110 80 1110; Add 1528 1528 1110; Add 1243 1243 1528; Sub 1380 1380 1337; Mul 1380 100 1380;
  Add 1243 1243 1380; Mul 1243 526 1243; Mul 1380 499 1566; Add 1243 1243 1380; Mul 1550 536 1550;
  Mul 1380 784 1320; Add 1550 1550 1380; Add 1243 1243 1550; Sub 1182 1182 1243; Mul 1371 791 1371;
  Mul 1515 543 1515; Add 1371 1371 1515; Mul 1536 539 1536; Mul 1515 538 1572; Add 1536 1536 1515;
  Sub 1371 1371 1536; Add 1182 1182 1371; Add 1486 1486 1350; Sub 1486 1486 1440; Add 1548 1548 1686;
  Add 1503 1503 1512; Sub 1548 1548 1503; Sub 1486 1486 1548; Add 1152 1152 1133; Add 1097 1097 1241;
  Sub 1152 1152 1097; Add 1486 1486 1152; Add 1486 1486 1641; Add 1698 1698 1494; Add 1463 1463 1346;
  Sub 1698 1698 1463; Add 1372 1372 1489; Add 1051 1051 1419; Add 1372 1372 1051].
Definition casadi_f0_223 : list instruction := [
  Add 1206 1206 1352; Add 1660 1660 1391; Sub 1206 1206 1660; Add 1372 1372 1206; Sub 1698 1698 1372;
  Add 1698 1698 1668; Add 1330 1330 1115; Add 1386 1386 1018; Sub 1330 1330 1386; Add 1261 1261 1125;
  Add 1128 1128 1102; Add 1261 1261 1128; Add 1433 1433 1092; Add 1156 1156 1237; Sub 1433 1433 1156;
  Add 1261 1261 1433; Sub 1330 1330 1261; Add 1330 1330 1384; Add 1345 1345 1169; Add 1652 1652 1284;
  Sub 1345 1345 1652; Add 1120 1120 1535; Add 1272 1272 1147; Add 1120 1120 1272; Add 1444 1444 1394;
  Add 1318 1318 1164; Sub 1444 1444 1318; Add 1120 1120 1444; Sub 1345 1345 1120; Add 1345 1345 1455;
  Add 1347 1347 1480; Add 1271 1271 1339; Sub 1347 1347 1271; Add 1355 1355 1378; Add 1311 1311 1438;
  Add 1355 1355 1311; Add 1573 1573 1362; Add 1224 1224 1659; Sub 1573 1573 1224; Add 1355 1355 1573;
  Sub 1347 1347 1355; Add 1347 1347 1195; Add 1345 1345 1347; Add 1330 1330 1345; Add 1698 1698 1330;
  Add 1486 1486 1698; Mul 1486 216 1486; Mul 1195 507 1089; Sub 1486 1486 1195; Add 1098 1098 1081;
  Sub 1415 1415 1104; Sub 1098 1098 1415; Sub 1312 1312 1177; Add 1098 1098 1312; Add 1227 1227 1288;
  Sub 1491 1491 1591; Sub 1227 1227 1491; Sub 1546 1546 1301; Add 1227 1227 1546; Add 1107 1107 1210;
  Sub 1478 1478 1275; Sub 1107 1107 1478; Sub 1389 1389 1188; Add 1107 1107 1389; Add 1430 1430 1541;
  Sub 1340 1340 1245; Sub 1430 1430 1340; Sub 1368 1368 1131; Add 1430 1430 1368; Add 1282 1282 1675;
  Sub 1071 1071 1479; Sub 1282 1282 1071; Sub 1401 1401 1682; Add 1282 1282 1401; Add 1430 1430 1282;
  Add 1107 1107 1430; Add 1227 1227 1107; Add 1098 1098 1227; Mul 1098 215 1098; Mul 1401 226 1204;
  Add 1098 1098 1401; Sub 1486 1486 1098; Sub 1418 1418 1171; Sub 1084 1084 1539; Sub 1165 1165 1399;
  Sub 1321 1321 1656; Sub 1559 1559 1166; Add 1321 1321 1559; Add 1165 1165 1321; Add 1084 1084 1165;
  Add 1418 1418 1084; Mul 1166 540 1418; Mul 1656 805 1447; Sub 1166 1166 1656; Add 1511 1511 1216;
  Sub 1322 1322 1511; Sub 1511 1322 1442; Add 1119 1119 1285; Add 1396 1396 1423; Add 1244 1244 1396;
  Sub 1119 1119 1244; Add 1244 1119 1030; Add 1252 1252 1690; Add 1484 1484 1461; Add 1359 1359 1484;
  Sub 1252 1252 1359; Add 1359 1252 1427; Add 1687 1687 1387; Add 1603 1603 1651; Add 1547 1547 1603;
  Sub 1687 1687 1547; Add 1547 1687 1607; Add 1094 1094 1146; Add 1579 1579 1631; Add 1663 1663 1579;
  Sub 1094 1094 1663; Add 1663 1094 1213; Add 1547 1547 1663; Add 1359 1359 1547; Add 1244 1244 1359;
  Add 1511 1511 1244; Mul 1511 544 1511; Mul 1579 693 1696; Add 1511 1511 1579; Add 1166 1166 1511;
  Sub 1486 1486 1166; Add 1182 1182 1486; Mul 1182 215 1182; Add 1514 1514 1182; Sub 1139 1139 1514;
  Sub 1467 1467 1442; Add 1520 1520 1030; Add 1435 1435 1427; Add 1118 1118 1607; Add 1161 1161 1213;
  Add 1118 1118 1161; Add 1435 1435 1118; Add 1520 1520 1435; Add 1467 1467 1520; Mul 1467 216 1467;
  Mul 1514 305 1089; Sub 1467 1467 1514; Mul 1418 215 1418; Mul 1514 805 1204; Add 1418 1418 1514;
  Sub 1467 1467 1418; Add 1699 1699 1467; Mul 1699 540 1699; Mul 1467 307 1447].
Definition casadi_f0_224 : list instruction := [
  Sub 1699 1699 1467; Mul 1467 360 1696; Mul 1527 216 1527; Mul 1418 806 1089; Sub 1527 1527 1418;
  Add 1322 1322 1442; Sub 1119 1119 1030; Sub 1252 1252 1427; Sub 1687 1687 1607; Sub 1094 1094 1213;
  Add 1687 1687 1094; Add 1252 1252 1687; Add 1119 1119 1252; Add 1322 1322 1119; Mul 1322 215 1322;
  Mul 1213 700 1204; Add 1322 1322 1213; Sub 1527 1527 1322; Add 1572 1572 1527; Mul 1572 544 1572;
  Add 1467 1467 1572; Add 1699 1699 1467; Sub 1139 1139 1699; Mul 1139 1 1139; Mul 1699 469 1090;
  Add 1139 1139 1699; Add 1344 1344 1139; Mul 1139 602 1130; Mul 1699 783 1149; Add 1139 1139 1699;
  Mul 1699 670 1648; Mul 1467 488 1329; Add 1699 1699 1467; Add 1139 1139 1699; Mul 1699 671 1363;
  Mul 1467 532 1113; Add 1699 1699 1467; Sub 1139 1139 1699; Mul 1699 679 1296; Mul 1467 523 1681;
  Add 1699 1699 1467; Mul 1467 796 1208; Mul 1667 680 1667; Mul 1572 255 1303; Add 1667 1667 1572;
  Mul 1250 674 1250; Mul 1572 278 1581; Sub 1250 1250 1572; Sub 1667 1667 1250; Mul 1543 216 1543;
  Mul 1250 294 1089; Sub 1543 1543 1250; Mul 1421 215 1421; Mul 1250 299 1204; Add 1421 1421 1250;
  Add 1543 1543 1421; Sub 1667 1667 1543; Mul 1543 670 1208; Mul 1421 502 1329; Add 1543 1543 1421;
  Mul 1421 602 1495; Mul 1250 505 1149; Add 1421 1421 1250; Sub 1543 1543 1421; Sub 1543 1667 1543;
  Mul 1543 672 1543; Mul 1421 502 1543; Add 1467 1467 1421; Sub 1699 1699 1467; Add 1139 1139 1699;
  Mul 1699 674 1584; Mul 1467 794 1581; Sub 1699 1699 1467; Mul 1467 680 1140; Mul 1421 689 1303;
  Add 1250 1467 1421; Add 1373 1373 1088; Add 1280 1280 1410; Add 1376 1376 1280; Sub 1373 1373 1376;
  Add 1376 1373 1496; Add 1200 1200 1601; Add 1620 1620 1565; Add 1192 1192 1620; Sub 1200 1200 1192;
  Add 1192 1200 1191; Add 1202 1202 1235; Add 1123 1123 1283; Add 1121 1121 1123; Sub 1202 1202 1121;
  Add 1121 1202 1483; Add 1117 1117 1351; Add 1093 1093 1398; Add 1254 1254 1093; Sub 1117 1117 1254;
  Add 1254 1117 1616; Add 1121 1121 1254; Add 1192 1192 1121; Add 1376 1376 1192; Mul 1376 676 1376;
  Mul 1093 410 1599; Add 1376 1376 1093; Sub 1250 1250 1376; Add 1699 1699 1250; Mul 1250 215 1310;
  Mul 1376 461 1204; Add 1250 1250 1376; Mul 1114 216 1114; Mul 1376 277 1089; Sub 1114 1114 1376;
  Sub 1250 1250 1114; Add 1699 1699 1250; Add 1139 1139 1699; Mul 1139 216 1139; Mul 1699 707 1089;
  Sub 1139 1139 1699; Mul 1699 793 1204; Mul 1250 602 1528; Mul 1376 491 1149; Add 1250 1250 1376;
  Mul 1376 670 1130; Mul 1093 783 1329; Add 1376 1376 1093; Add 1250 1250 1376; Mul 1376 671 1465;
  Mul 1093 517 1113; Add 1376 1376 1093; Sub 1250 1250 1376; Mul 1376 796 1495; Mul 1093 505 1543;
  Add 1376 1376 1093; Mul 1093 675 1296; Mul 1398 523 1432; Add 1093 1093 1398; Sub 1376 1376 1093;
  Add 1250 1250 1376; Mul 1376 674 1084; Mul 1093 682 1581; Sub 1376 1376 1093; Mul 1093 680 1244;
  Mul 1398 808 1303; Add 1093 1093 1398; Add 1500 1500 1533; Sub 1694 1694 1500; Add 1540 1540 1617;
  Add 1694 1694 1540; Sub 1540 1694 1634; Add 1106 1106 1255; Sub 1493 1493 1106].
Definition casadi_f0_225 : list instruction := [
  Add 1172 1172 1585; Add 1493 1493 1172; Sub 1172 1493 1574; Add 1562 1562 1647; Sub 1678 1678 1562;
  Add 1653 1653 1233; Add 1678 1678 1653; Sub 1653 1678 1026; Add 1526 1526 1025; Sub 1231 1231 1526;
  Add 1552 1552 1326; Add 1231 1231 1552; Sub 1552 1231 1332; Add 1653 1653 1552; Add 1172 1172 1653;
  Add 1540 1540 1172; Mul 1540 676 1540; Mul 1326 301 1599; Add 1540 1540 1326; Sub 1093 1093 1540;
  Add 1093 1376 1093; Mul 1227 215 1227; Mul 1540 303 1204; Add 1326 1227 1540; Mul 1526 216 1698;
  Mul 1025 468 1089; Sub 1526 1526 1025; Sub 1326 1326 1526; Add 1093 1093 1326; Add 1250 1250 1093;
  Mul 1250 215 1250; Add 1699 1699 1250; Sub 1250 1139 1699; Mul 1084 215 1084; Mul 1093 682 1204;
  Add 1326 1084 1093; Mul 1526 216 1520; Mul 1025 792 1089; Sub 1526 1526 1025; Sub 1326 1326 1526;
  Add 1681 1681 1326; Mul 1326 540 1681; Mul 1526 233 1447; Sub 1326 1326 1526; Mul 1526 789 1696;
  Mul 1025 215 1119; Mul 1233 686 1204; Add 1025 1025 1233; Mul 1140 216 1140; Mul 1233 689 1089;
  Sub 1140 1140 1233; Sub 1025 1025 1140; Add 1432 1432 1025; Mul 1025 544 1432; Add 1526 1526 1025;
  Add 1326 1326 1526; Sub 1250 1250 1326; Mul 1250 2 1250; Mul 1326 285 1506; Add 1250 1250 1326;
  Add 1344 1344 1250; Mul 1250 677 1549; Mul 1326 530 1449; Add 1250 1250 1326; Mul 1326 706 1509;
  Mul 1526 782 1679; Add 1326 1326 1526; Mul 1526 712 1513; Mul 1025 481 1162; Add 1526 1526 1025;
  Add 1326 1326 1526; Sub 1250 1250 1326; Mul 1326 719 1605; Mul 1526 519 1218; Add 1326 1326 1526;
  Mul 1526 709 1196; Mul 1287 216 1287; Mul 1025 348 1089; Sub 1287 1287 1025; Mul 1590 215 1590;
  Mul 1025 353 1204; Add 1590 1590 1025; Add 1287 1287 1590; Mul 1557 714 1557; Mul 1590 332 1576;
  Add 1557 1557 1590; Mul 1258 718 1258; Mul 1590 309 1209; Add 1258 1258 1590; Sub 1557 1557 1258;
  Add 1287 1287 1557; Mul 1557 706 1289; Mul 1258 497 1679; Add 1557 1557 1258; Mul 1258 712 1196;
  Mul 1590 494 1162; Add 1258 1258 1590; Sub 1557 1557 1258; Sub 1557 1287 1557; Mul 1557 156 1557;
  Mul 1258 494 1557; Add 1526 1526 1258; Sub 1326 1326 1526; Add 1250 1250 1326; Mul 1326 716 1192;
  Mul 1526 403 1375; Add 1326 1326 1526; Mul 1526 718 1595; Mul 1258 696 1209; Add 1590 1526 1258;
  Sub 1326 1326 1590; Mul 1590 714 1600; Mul 1025 797 1576; Add 1590 1590 1025; Sub 1326 1326 1590;
  Mul 1498 216 1498; Mul 1590 331 1089; Sub 1498 1498 1590; Mul 1590 215 1563; Mul 1025 414 1204;
  Add 1590 1590 1025; Sub 1590 1498 1590; Add 1326 1326 1590; Add 1250 1250 1326; Mul 1250 216 1250;
  Mul 1326 790 1089; Sub 1250 1250 1326; Mul 1326 704 1204; Mul 1590 677 1490; Mul 1025 513 1449;
  Add 1590 1590 1025; Mul 1025 706 1270; Mul 1233 483 1679; Add 1025 1025 1233; Mul 1233 712 1509;
  Mul 1562 782 1162; Add 1233 1233 1562; Add 1025 1025 1233; Sub 1590 1590 1025; Mul 1025 709 1289;
  Mul 1233 497 1557; Add 1025 1025 1233; Mul 1233 711 1605; Mul 1562 519 1492; Add 1233 1233 1562;
  Sub 1025 1025 1233; Add 1590 1590 1025; Mul 1025 716 1172; Mul 1233 293 1375].
Definition casadi_f0_226 : list instruction := [
  Add 1025 1025 1233; Mul 1233 718 1359; Mul 1562 415 1209; Add 1233 1233 1562; Sub 1025 1025 1233;
  Mul 1233 714 1165; Mul 1562 685 1576; Add 1647 1233 1562; Sub 1025 1025 1647; Mul 1647 216 1330;
  Mul 1585 416 1089; Sub 1647 1647 1585; Mul 1107 215 1107; Mul 1585 357 1204; Add 1106 1107 1585;
  Sub 1647 1647 1106; Add 1025 1025 1647; Add 1590 1590 1025; Mul 1590 215 1590; Add 1326 1326 1590;
  Sub 1590 1250 1326; Mul 1025 216 1435; Mul 1647 795 1089; Sub 1025 1025 1647; Mul 1165 215 1165;
  Mul 1647 685 1204; Add 1106 1165 1647; Sub 1025 1025 1106; Add 1218 1218 1025; Mul 1025 540 1218;
  Mul 1106 697 1447; Sub 1025 1025 1106; Mul 1106 695 1696; Mul 1595 216 1595; Mul 1255 696 1089;
  Sub 1595 1595 1255; Mul 1255 215 1252; Mul 1617 448 1204; Add 1255 1255 1617; Sub 1255 1595 1255;
  Add 1492 1492 1255; Mul 1255 544 1492; Add 1106 1106 1255; Add 1025 1025 1106; Sub 1025 1590 1025;
  Mul 1025 3 1025; Mul 1106 691 1691; Add 1025 1025 1106; Add 1344 1344 1025; Mul 1025 715 1673;
  Mul 1106 606 1575; Add 1025 1025 1106; Mul 1106 721 1499; Mul 1255 786 1457; Add 1106 1106 1255;
  Add 1025 1025 1106; Mul 1106 722 1510; Mul 1255 528 1105; Add 1106 1106 1255; Add 1025 1025 1106;
  Mul 1106 730 1642; Mul 1255 515 1137; Add 1106 1106 1255; Mul 1255 683 1443; Mul 1636 310 1636;
  Mul 1617 408 1672; Add 1636 1636 1617; Mul 1367 327 1367; Mul 1617 404 1481; Add 1367 1367 1617;
  Sub 1636 1636 1367; Mul 1501 731 1501; Mul 1367 363 1625; Add 1501 1501 1367; Mul 1606 725 1606;
  Mul 1367 387 1664; Add 1606 1606 1367; Sub 1501 1501 1606; Add 1636 1636 1501; Mul 1501 721 1443;
  Mul 1606 486 1457; Add 1501 1501 1606; Mul 1606 715 1474; Mul 1367 489 1575; Add 1606 1606 1367;
  Sub 1501 1501 1606; Sub 1501 1636 1501; Mul 1501 723 1501; Mul 1606 486 1501; Add 1255 1255 1606;
  Sub 1106 1106 1255; Add 1025 1025 1106; Mul 1106 725 1036; Mul 1255 800 1664; Add 1106 1106 1255;
  Mul 1255 731 1253; Mul 1606 703 1625; Add 1367 1255 1606; Mul 1617 727 1121; Mul 1500 306 1609;
  Add 1617 1617 1500; Add 1367 1367 1617; Add 1106 1106 1367; Mul 1367 310 1674; Mul 1617 361 1672;
  Add 1367 1367 1617; Mul 1170 327 1170; Mul 1617 386 1481; Add 1500 1170 1617; Mul 1533 318 1522;
  Mul 1398 59 1403; Add 1533 1533 1398; Add 1500 1500 1533; Add 1367 1367 1500; Sub 1106 1106 1367;
  Add 1025 1025 1106; Mul 1106 216 1025; Mul 1367 690 1089; Sub 1106 1106 1367; Mul 1367 807 1204;
  Mul 1500 715 1052; Mul 1533 705 1575; Add 1500 1500 1533; Mul 1533 721 1673; Mul 1398 606 1457;
  Add 1533 1533 1398; Add 1500 1500 1533; Mul 1533 722 1504; Mul 1398 510 1105; Add 1533 1533 1398;
  Add 1500 1500 1533; Mul 1533 683 1474; Mul 1398 489 1501; Add 1533 1533 1398; Mul 1398 726 1642;
  Mul 1351 515 1215; Add 1398 1398 1351; Sub 1533 1533 1398; Add 1500 1500 1533; Mul 1533 725 1321;
  Mul 1398 692 1664; Add 1351 1533 1398; Mul 1123 731 1547; Mul 1283 465 1625; Add 1123 1123 1283;
  Mul 1283 727 1653; Mul 1235 785 1609; Add 1283 1283 1235; Add 1123 1123 1283].
Definition casadi_f0_227 : list instruction := [
  Add 1351 1351 1123; Mul 1430 310 1430; Mul 1123 412 1672; Add 1283 1430 1123; Mul 1235 327 1345;
  Mul 1620 407 1481; Add 1235 1235 1620; Mul 1620 318 1645; Mul 1565 580 1403; Add 1620 1620 1565;
  Add 1235 1235 1620; Add 1283 1283 1235; Sub 1351 1351 1283; Add 1500 1500 1351; Mul 1351 215 1500;
  Add 1367 1367 1351; Sub 1351 1106 1367; Mul 1321 310 1321; Mul 1283 692 1672; Add 1235 1321 1283;
  Mul 1620 327 1118; Mul 1565 798 1481; Add 1620 1620 1565; Mul 1565 318 1658; Mul 1601 640 1403;
  Add 1565 1565 1601; Add 1620 1620 1565; Add 1235 1235 1620; Sub 1137 1137 1235; Mul 1235 540 1137;
  Mul 1620 811 1447; Sub 1235 1235 1620; Mul 1620 813 1696; Mul 1565 310 1687; Mul 1601 464 1672;
  Add 1565 1565 1601; Mul 1253 327 1253; Mul 1601 703 1481; Add 1280 1253 1601; Mul 1410 318 1701;
  Mul 1088 662 1403; Add 1410 1410 1088; Add 1280 1280 1410; Add 1565 1565 1280; Sub 1215 1215 1565;
  Mul 1565 544 1215; Add 1620 1620 1565; Add 1235 1235 1620; Sub 1235 1351 1235; Mul 1235 4 1235;
  Mul 1620 812 1101; Add 1235 1235 1620; Add 1344 1344 1235; Mul 1235 728 1022; Mul 1620 609 1564;
  Add 1235 1235 1620; Mul 1620 733 1662; Mul 1565 604 1452; Add 1620 1620 1565; Add 1235 1235 1620;
  Mul 1620 734 1251; Mul 1565 426 1424; Add 1620 1620 1565; Add 1235 1235 1620; Mul 1620 739 1406;
  Mul 1565 438 1324; Add 1620 1620 1565; Mul 1565 816 1640; Mul 1408 358 1408; Mul 1280 462 1470;
  Add 1408 1408 1280; Mul 1468 372 1468; Mul 1280 458 1307; Add 1468 1468 1280; Sub 1408 1408 1468;
  Mul 1225 741 1225; Mul 1468 417 1507; Add 1225 1225 1468; Mul 1665 736 1665; Mul 1468 441 1578;
  Add 1665 1665 1468; Sub 1225 1225 1665; Add 1408 1408 1225; Mul 1225 733 1640; Mul 1665 445 1452;
  Add 1225 1225 1665; Mul 1665 728 1144; Mul 1468 434 1564; Add 1665 1665 1468; Sub 1225 1225 1665;
  Sub 1408 1408 1225; Mul 1408 430 1408; Mul 1225 445 1408; Add 1565 1565 1225; Sub 1620 1620 1565;
  Add 1235 1235 1620; Mul 1620 736 1445; Mul 1565 803 1578; Add 1620 1620 1565; Mul 1565 741 1361;
  Mul 1225 710 1507; Add 1665 1565 1225; Mul 1468 738 1254; Mul 1280 356 1476; Add 1468 1468 1280;
  Add 1665 1665 1468; Add 1620 1620 1665; Mul 1665 358 1671; Mul 1468 352 1470; Add 1665 1665 1468;
  Mul 1502 372 1502; Mul 1468 440 1307; Add 1280 1502 1468; Mul 1410 369 1544; Mul 1088 36 1587;
  Add 1410 1410 1088; Add 1280 1280 1410; Add 1665 1665 1280; Sub 1620 1620 1665; Add 1235 1235 1620;
  Mul 1620 216 1235; Mul 1665 814 1089; Sub 1620 1620 1665; Mul 1665 817 1204; Mul 1564 13 1564;
  Mul 1280 728 1277; Sub 1564 1564 1280; Mul 1280 733 1022; Mul 1452 609 1452; Add 1280 1280 1452;
  Add 1564 1564 1280; Mul 1280 734 1111; Mul 1424 443 1424; Add 1280 1280 1424; Add 1564 1564 1280;
  Mul 1280 816 1144; Mul 1424 434 1408; Add 1280 1280 1424; Mul 1424 735 1406; Mul 1452 438 1466;
  Add 1424 1424 1452; Sub 1280 1280 1424; Add 1564 1564 1280; Mul 1280 736 1559; Mul 1424 699 1578;
  Add 1452 1280 1424; Mul 1410 741 1663; Mul 1088 394 1507; Add 1410 1410 1088].
Definition casadi_f0_228 : list instruction := [
  Mul 1088 738 1552; Mul 1572 245 1476; Add 1088 1088 1572; Add 1410 1410 1088; Add 1452 1452 1410;
  Mul 1282 358 1282; Mul 1410 466 1470; Add 1088 1282 1410; Mul 1572 372 1347; Mul 1527 359 1307;
  Add 1572 1572 1527; Mul 1527 369 1582; Mul 1322 593 1587; Add 1527 1527 1322; Add 1572 1572 1527;
  Add 1088 1088 1572; Sub 1452 1452 1088; Add 1564 1564 1452; Mul 1452 215 1564; Add 1665 1665 1452;
  Sub 1452 1620 1665; Mul 1559 358 1559; Mul 1088 699 1470; Add 1572 1559 1088; Mul 1527 372 1161;
  Mul 1322 801 1307; Add 1527 1527 1322; Mul 1322 369 1167; Mul 1213 645 1587; Add 1322 1322 1213;
  Add 1527 1527 1322; Add 1572 1572 1527; Sub 1324 1324 1572; Mul 1572 540 1324; Mul 1527 820 1447;
  Sub 1572 1572 1527; Mul 1527 822 1696; Mul 1322 358 1094; Mul 1213 457 1470; Add 1322 1322 1213;
  Mul 1361 372 1361; Mul 1213 710 1307; Add 1607 1361 1213; Mul 1427 369 1122; Mul 1030 666 1587;
  Add 1427 1427 1030; Add 1607 1607 1427; Add 1322 1322 1607; Sub 1466 1466 1322; Mul 1322 544 1466;
  Add 1527 1527 1322; Add 1572 1572 1527; Sub 1572 1452 1572; Mul 1572 5 1572; Mul 1527 821 1349;
  Add 1572 1572 1527; Add 1344 1344 1572; Mul 1158 85 1158; Mul 1129 79 1129; Sub 1158 1158 1129;
  Mul 1247 54 1247; Mul 1205 61 1205; Sub 1247 1247 1205; Mul 1016 19 1016; Mul 1205 763 1186;
  Sub 1016 1016 1205; Mul 1205 751 1145; Mul 1695 35 1695; Add 1205 1205 1695; Sub 1016 1016 1205;
  Mul 1697 55 1697; Mul 1034 62 1034; Sub 1697 1697 1034; Add 1016 1016 1697; Add 1247 1247 1016;
  Mul 1075 86 1075; Mul 1060 91 1060; Sub 1075 1075 1060; Add 1075 1247 1075; Add 1158 1158 1075;
  Mul 1459 102 1459; Sub 1459 1158 1459; Mul 1302 101 1302; Add 1459 1459 1302; Add 1344 1344 1459;
  Mul 1459 777 1344; Sub 1374 1374 1459; Add 1077 1077 1374; Div 1374 1232 92; Mul 1459 1023 1639;
  Sub 1374 1374 1459; Mul 1459 767 1374; Mul 1505 674 1505; Mul 1302 630 1581; Sub 1505 1505 1302;
  Mul 1302 654 1303; Mul 1558 680 1558; Add 1302 1302 1558; Add 1100 1100 1333; Sub 1302 1302 1100;
  Add 1505 1505 1302; Mul 1302 615 1204; Mul 1246 215 1246; Add 1302 1302 1246; Mul 1589 216 1589;
  Mul 1246 7 1089; Sub 1589 1589 1246; Sub 1302 1302 1589; Add 1505 1505 1302; Mul 1505 0 1505;
  Mul 1302 771 1038; Add 1505 1505 1302; Mul 1302 748 1281; Mul 1589 216 1296; Mul 1246 523 1089;
  Sub 1589 1589 1246; Add 1589 1581 1589; Mul 1589 672 1589; Mul 1246 545 1589; Sub 1302 1302 1246;
  Mul 1246 216 1208; Mul 1100 502 1089; Sub 1246 1246 1100; Mul 1100 215 1495; Mul 1333 505 1204;
  Add 1100 1100 1333; Add 1246 1246 1100; Sub 1246 1246 1599; Mul 1246 672 1246; Mul 1100 504 1246;
  Mul 1333 750 1179; Add 1100 1100 1333; Mul 1333 215 1296; Mul 1558 523 1204; Add 1333 1333 1558;
  Sub 1333 1303 1333; Mul 1333 672 1333; Mul 1558 541 1333; Mul 1075 627 1518; Add 1558 1558 1075;
  Sub 1100 1100 1558; Add 1302 1302 1100; Mul 1465 215 1465; Mul 1100 517 1204; Add 1465 1465 1100;
  Mul 1363 216 1363; Mul 1100 532 1089; Sub 1363 1363 1100; Sub 1465 1465 1363].
Definition casadi_f0_229 : list instruction := [
  Mul 1363 627 1208; Mul 1100 502 1333; Add 1363 1363 1100; Mul 1100 748 1495; Mul 1558 505 1589;
  Sub 1100 1100 1558; Sub 1363 1363 1100; Add 1465 1465 1363; Mul 1465 508 1465; Mul 1363 744 1434;
  Add 1465 1465 1363; Mul 1363 215 1130; Mul 1100 783 1204; Add 1363 1363 1100; Mul 1648 216 1648;
  Mul 1100 488 1089; Sub 1648 1648 1100; Sub 1363 1363 1648; Mul 1648 748 1296; Mul 1589 523 1589;
  Sub 1648 1648 1589; Mul 1208 750 1208; Mul 1589 502 1246; Add 1208 1208 1589; Sub 1648 1648 1208;
  Add 1363 1363 1648; Mul 1363 536 1363; Mul 1648 824 1320; Add 1363 1363 1648; Sub 1465 1465 1363;
  Mul 1528 215 1528; Mul 1363 491 1204; Add 1528 1528 1363; Mul 1130 216 1130; Mul 1363 783 1089;
  Sub 1130 1130 1363; Sub 1528 1528 1130; Mul 1495 750 1495; Mul 1246 505 1246; Add 1495 1495 1246;
  Mul 1296 627 1296; Mul 1333 523 1333; Add 1296 1296 1333; Sub 1495 1495 1296; Add 1528 1528 1495;
  Mul 1528 526 1528; Mul 1495 825 1566; Add 1528 1528 1495; Sub 1465 1465 1528; Add 1302 1302 1465;
  Mul 1520 674 1520; Mul 1465 792 1581; Sub 1520 1520 1465; Add 1421 1421 1467; Mul 1467 298 1599;
  Sub 1373 1373 1496; Sub 1200 1200 1191; Sub 1202 1202 1483; Sub 1117 1117 1616; Add 1202 1202 1117;
  Add 1200 1200 1202; Add 1373 1373 1200; Mul 1616 676 1373; Add 1467 1467 1616; Sub 1421 1421 1467;
  Add 1520 1520 1421; Mul 1421 468 1204; Mul 1698 215 1698; Add 1421 1421 1698; Sub 1421 1421 1114;
  Add 1520 1520 1421; Mul 1520 216 1520; Mul 1421 823 1089; Sub 1520 1520 1421; Mul 1421 686 1303;
  Mul 1119 680 1119; Add 1421 1421 1119; Mul 1119 232 1599; Add 1694 1694 1634; Add 1493 1493 1574;
  Add 1678 1678 1026; Add 1231 1231 1332; Add 1678 1678 1231; Add 1493 1493 1678; Add 1694 1694 1493;
  Mul 1332 676 1694; Add 1119 1119 1332; Sub 1421 1421 1119; Add 1376 1376 1421; Add 1540 1540 1227;
  Mul 1310 216 1310; Mul 1227 461 1089; Sub 1310 1310 1227; Sub 1540 1540 1310; Add 1376 1376 1540;
  Mul 1376 215 1376; Mul 1540 668 1204; Add 1376 1376 1540; Sub 1520 1520 1376; Add 1093 1093 1084;
  Mul 1584 216 1584; Mul 1084 794 1089; Sub 1584 1584 1084; Sub 1093 1093 1584; Mul 1093 540 1093;
  Mul 1584 664 1447; Sub 1093 1093 1584; Mul 1584 808 1204; Mul 1244 215 1244; Add 1584 1584 1244;
  Sub 1584 1584 1140; Mul 1584 544 1584; Mul 1140 642 1696; Add 1584 1584 1140; Add 1093 1093 1584;
  Sub 1520 1520 1093; Add 1302 1302 1520; Mul 1302 1 1302; Mul 1520 760 1090; Add 1302 1302 1520;
  Add 1505 1505 1302; Mul 1681 674 1681; Mul 1302 233 1581; Sub 1681 1681 1302; Mul 1302 789 1303;
  Mul 1432 680 1432; Add 1302 1302 1432; Mul 1432 637 1599; Mul 1694 215 1694; Mul 1520 232 1204;
  Add 1694 1694 1520; Mul 1373 216 1373; Mul 1520 298 1089; Sub 1373 1373 1520; Sub 1694 1694 1373;
  Add 1543 1543 1694; Mul 1543 676 1543; Add 1432 1432 1543; Sub 1302 1302 1432; Add 1681 1681 1302;
  Sub 1699 1699 1139; Add 1681 1681 1699; Mul 1681 2 1681; Mul 1699 826 1506; Add 1681 1681 1699;
  Add 1505 1505 1681; Mul 1681 674 1218; Mul 1699 697 1581; Sub 1681 1681 1699].
Definition casadi_f0_230 : list instruction := [
  Mul 1699 695 1303; Mul 1139 680 1492; Add 1699 1699 1139; Mul 1139 647 1599; Mul 1302 216 1200;
  Mul 1432 411 1089; Sub 1302 1302 1432; Mul 1432 215 1493; Mul 1543 302 1204; Add 1432 1432 1543;
  Sub 1302 1302 1432; Add 1557 1557 1302; Mul 1302 676 1557; Add 1139 1139 1302; Sub 1699 1699 1139;
  Add 1681 1681 1699; Sub 1326 1326 1250; Add 1681 1681 1326; Mul 1681 3 1681; Mul 1326 347 1691;
  Add 1681 1681 1326; Add 1505 1505 1681; Mul 1681 674 1137; Mul 1326 811 1581; Sub 1681 1681 1326;
  Mul 1326 813 1303; Mul 1250 680 1215; Add 1326 1326 1250; Mul 1250 802 1599; Mul 1699 310 1678;
  Mul 1139 252 1672; Add 1699 1699 1139; Mul 1139 327 1202; Mul 1302 339 1481; Add 1139 1139 1302;
  Mul 1524 318 1524; Mul 1302 701 1403; Add 1432 1524 1302; Add 1139 1139 1432; Add 1699 1699 1139;
  Sub 1501 1501 1699; Mul 1699 676 1501; Add 1250 1250 1699; Sub 1326 1326 1250; Add 1681 1681 1326;
  Sub 1367 1367 1106; Add 1681 1681 1367; Mul 1681 4 1681; Mul 1367 698 1101; Add 1681 1681 1367;
  Add 1505 1505 1681; Mul 1681 674 1324; Mul 1367 820 1581; Sub 1681 1681 1367; Mul 1367 822 1303;
  Mul 1106 680 1466; Add 1367 1367 1106; Mul 1106 788 1599; Mul 1326 358 1231; Mul 1250 234 1470;
  Add 1326 1326 1250; Mul 1250 372 1117; Mul 1699 355 1307; Add 1250 1250 1699; Mul 1109 369 1109;
  Mul 1699 708 1587; Add 1139 1109 1699; Add 1250 1250 1139; Add 1326 1326 1250; Sub 1408 1408 1326;
  Mul 1326 676 1408; Add 1106 1106 1326; Sub 1367 1367 1106; Add 1681 1681 1367; Sub 1665 1665 1620;
  Add 1681 1681 1665; Mul 1681 5 1681; Mul 1665 809 1349; Add 1681 1681 1665; Add 1505 1505 1681;
  Sub 1158 1158 1505; Mul 1505 778 1158; Add 1459 1459 1505; Sub 1077 1077 1459; Div 1459 1028 92;
  Mul 1505 1516 1639; Sub 1459 1459 1505; Mul 1505 775 1459; Add 1426 1426 1517; Mul 1517 658 1209;
  Mul 1151 718 1151; Add 1517 1517 1151; Sub 1426 1426 1517; Mul 1517 635 1576; Mul 1267 714 1267;
  Add 1517 1517 1267; Sub 1426 1426 1517; Mul 1265 216 1265; Mul 1517 90 1089; Sub 1265 1265 1517;
  Mul 1517 566 1204; Mul 1400 215 1400; Add 1517 1517 1400; Sub 1265 1265 1517; Add 1426 1426 1265;
  Mul 1426 0 1426; Mul 1265 818 1038; Add 1426 1426 1265; Mul 1265 216 1605; Mul 1517 519 1089;
  Sub 1265 1265 1517; Sub 1265 1265 1576; Mul 1265 156 1265; Mul 1517 545 1265; Mul 1400 684 1281;
  Add 1517 1517 1400; Mul 1400 216 1196; Mul 1267 494 1089; Sub 1400 1400 1267; Mul 1267 215 1289;
  Mul 1151 497 1204; Add 1267 1267 1151; Add 1400 1400 1267; Sub 1400 1375 1400; Mul 1400 156 1400;
  Mul 1267 504 1400; Mul 1151 660 1179; Add 1267 1267 1151; Mul 1151 215 1605; Mul 1681 519 1204;
  Add 1151 1151 1681; Sub 1151 1151 1209; Mul 1151 156 1151; Mul 1681 541 1151; Mul 1665 827 1518;
  Add 1681 1681 1665; Sub 1267 1267 1681; Add 1517 1517 1267; Mul 1549 216 1549; Mul 1267 530 1089;
  Sub 1549 1549 1267; Mul 1490 215 1490; Mul 1267 513 1204; Add 1490 1490 1267; Sub 1549 1549 1490;
  Mul 1490 827 1196; Mul 1267 494 1151; Add 1490 1490 1267; Mul 1267 684 1289].
Definition casadi_f0_231 : list instruction := [
  Mul 1681 497 1265; Add 1267 1267 1681; Sub 1490 1490 1267; Add 1549 1549 1490; Mul 1490 508 1549;
  Mul 1267 656 1434; Add 1490 1490 1267; Mul 1513 216 1513; Mul 1267 481 1089; Sub 1513 1513 1267;
  Mul 1267 215 1509; Mul 1681 782 1204; Add 1267 1267 1681; Sub 1513 1513 1267; Mul 1267 684 1605;
  Mul 1681 519 1265; Add 1267 1267 1681; Mul 1196 660 1196; Mul 1681 494 1400; Add 1196 1196 1681;
  Sub 1267 1267 1196; Add 1513 1513 1267; Mul 1267 536 1513; Mul 1196 829 1320; Add 1267 1267 1196;
  Sub 1490 1490 1267; Mul 1509 216 1509; Mul 1267 782 1089; Sub 1509 1509 1267; Mul 1270 215 1270;
  Mul 1267 483 1204; Add 1270 1270 1267; Sub 1509 1509 1270; Mul 1289 660 1289; Mul 1270 497 1400;
  Add 1289 1289 1270; Mul 1605 827 1605; Mul 1270 519 1151; Add 1605 1605 1270; Sub 1289 1289 1605;
  Add 1509 1509 1289; Mul 1289 526 1509; Mul 1605 830 1566; Add 1289 1289 1605; Sub 1490 1490 1289;
  Add 1517 1517 1490; Mul 1490 411 1375; Mul 1200 716 1200; Add 1490 1490 1200; Add 1258 1258 1526;
  Sub 1490 1490 1258; Mul 1258 795 1576; Mul 1435 714 1435; Add 1258 1258 1435; Sub 1490 1490 1258;
  Mul 1258 416 1204; Mul 1330 215 1330; Add 1258 1258 1330; Sub 1498 1498 1258; Add 1490 1490 1498;
  Mul 1490 216 1490; Mul 1498 828 1089; Sub 1490 1490 1498; Mul 1498 302 1375; Mul 1493 716 1493;
  Add 1498 1498 1493; Mul 1493 448 1209; Mul 1252 718 1252; Add 1493 1493 1252; Sub 1498 1498 1493;
  Add 1562 1562 1233; Sub 1498 1498 1562; Mul 1563 216 1563; Mul 1562 414 1089; Sub 1563 1563 1562;
  Add 1585 1585 1107; Sub 1563 1563 1585; Add 1498 1498 1563; Mul 1498 215 1498; Mul 1563 832 1204;
  Add 1498 1498 1563; Sub 1563 1490 1498; Mul 1600 216 1600; Mul 1585 797 1089; Sub 1600 1600 1585;
  Add 1647 1647 1165; Sub 1600 1600 1647; Mul 1647 540 1600; Mul 1165 835 1447; Sub 1647 1647 1165;
  Mul 1165 415 1204; Mul 1359 215 1359; Add 1165 1165 1359; Sub 1595 1595 1165; Mul 1165 544 1595;
  Mul 1359 837 1696; Add 1165 1165 1359; Add 1647 1647 1165; Sub 1563 1563 1647; Add 1517 1517 1563;
  Mul 1517 1 1517; Mul 1563 632 1090; Add 1517 1517 1563; Add 1426 1426 1517; Mul 1265 678 1265;
  Mul 1517 684 1300; Add 1265 1265 1517; Mul 1151 673 1151; Mul 1517 827 1485; Add 1151 1151 1517;
  Mul 1400 799 1400; Mul 1517 660 1667; Add 1400 1400 1517; Add 1151 1151 1400; Add 1265 1265 1151;
  Mul 1509 602 1509; Mul 1151 830 1149; Add 1509 1509 1151; Mul 1513 670 1513; Mul 1151 829 1329;
  Add 1513 1513 1151; Mul 1549 671 1549; Mul 1151 656 1113; Add 1549 1549 1151; Sub 1513 1513 1549;
  Add 1509 1509 1513; Add 1265 1265 1509; Mul 1600 674 1600; Mul 1509 835 1581; Sub 1600 1600 1509;
  Mul 1595 680 1595; Mul 1509 837 1303; Add 1595 1595 1509; Mul 1192 216 1192; Mul 1509 403 1089;
  Sub 1192 1192 1509; Mul 1509 293 1204; Mul 1172 215 1172; Add 1509 1509 1172; Sub 1192 1192 1509;
  Mul 1192 676 1192; Mul 1509 839 1599; Add 1192 1192 1509; Sub 1595 1595 1192; Add 1600 1600 1595;
  Sub 1498 1498 1490; Add 1600 1600 1498; Add 1265 1265 1600; Mul 1265 2 1265].
Definition casadi_f0_232 : list instruction := [
  Mul 1600 834 1506; Add 1265 1265 1600; Add 1426 1426 1265; Mul 1265 647 1375; Mul 1557 716 1557;
  Add 1265 1265 1557; Mul 1557 695 1209; Mul 1492 718 1492; Add 1557 1557 1492; Sub 1265 1265 1557;
  Mul 1557 697 1576; Mul 1218 714 1218; Add 1557 1557 1218; Sub 1265 1265 1557; Add 1265 1265 1590;
  Mul 1265 3 1265; Mul 1590 836 1691; Add 1265 1265 1590; Add 1426 1426 1265; Mul 1265 802 1375;
  Mul 1590 716 1501; Add 1265 1265 1590; Mul 1590 813 1209; Mul 1557 718 1215; Add 1590 1590 1557;
  Sub 1265 1265 1590; Mul 1590 811 1576; Mul 1557 714 1137; Add 1590 1590 1557; Sub 1265 1265 1590;
  Add 1265 1265 1351; Mul 1265 4 1265; Mul 1351 702 1101; Add 1265 1265 1351; Add 1426 1426 1265;
  Mul 1265 788 1375; Mul 1351 716 1408; Add 1265 1265 1351; Mul 1351 822 1209; Mul 1590 718 1466;
  Add 1351 1351 1590; Sub 1265 1265 1351; Mul 1351 820 1576; Mul 1590 714 1324; Add 1351 1351 1590;
  Sub 1265 1265 1351; Add 1265 1265 1452; Mul 1265 5 1265; Mul 1452 810 1349; Add 1265 1265 1452;
  Add 1426 1426 1265; Add 1426 1426 1247; Mul 1247 769 1426; Sub 1505 1505 1247; Add 1077 1077 1505;
  Div 1505 1385 92; Mul 1247 1637 1639; Sub 1505 1505 1247; Mul 1247 815 1505; Mul 1265 640 1664;
  Mul 1658 725 1658; Add 1265 1265 1658; Mul 1658 662 1625; Mul 1701 731 1701; Add 1658 1658 1701;
  Add 1471 1471 1269; Add 1658 1658 1471; Add 1265 1265 1658; Mul 1658 580 1672; Mul 1645 310 1645;
  Add 1658 1658 1645; Mul 1645 59 1481; Mul 1522 327 1522; Add 1645 1645 1522; Add 1219 1219 1268;
  Add 1645 1645 1219; Add 1658 1658 1645; Sub 1265 1265 1658; Mul 1265 0 1265; Mul 1658 819 1038;
  Add 1265 1265 1658; Mul 1658 327 1642; Mul 1645 515 1481; Add 1658 1658 1645; Mul 1645 318 1474;
  Mul 1219 489 1403; Add 1645 1645 1219; Sub 1658 1658 1645; Sub 1658 1664 1658; Mul 1658 723 1658;
  Mul 1645 545 1658; Mul 1219 831 1281; Add 1645 1645 1219; Mul 1219 310 1474; Mul 1268 489 1672;
  Add 1219 1219 1268; Mul 1268 327 1443; Mul 1522 486 1481; Add 1268 1268 1522; Sub 1219 1219 1268;
  Sub 1219 1609 1219; Mul 1219 723 1219; Mul 1268 504 1219; Mul 1522 840 1179; Add 1268 1268 1522;
  Mul 1522 318 1443; Mul 1471 486 1403; Add 1522 1522 1471; Mul 1471 310 1642; Mul 1269 515 1672;
  Add 1471 1471 1269; Sub 1522 1522 1471; Sub 1522 1625 1522; Mul 1522 723 1522; Mul 1471 541 1522;
  Mul 1269 842 1518; Add 1471 1471 1269; Sub 1268 1268 1471; Add 1645 1645 1268; Mul 1268 842 1443;
  Mul 1471 486 1522; Add 1268 1268 1471; Mul 1471 831 1474; Mul 1269 489 1658; Add 1471 1471 1269;
  Sub 1268 1268 1471; Mul 1471 310 1504; Mul 1269 510 1672; Add 1471 1471 1269; Mul 1269 327 1510;
  Mul 1701 528 1481; Add 1269 1269 1701; Add 1471 1471 1269; Mul 1542 318 1542; Mul 1269 479 1403;
  Add 1542 1542 1269; Add 1471 1471 1542; Sub 1268 1268 1471; Mul 1471 508 1268; Mul 1542 841 1434;
  Add 1471 1471 1542; Mul 1542 831 1642; Mul 1269 515 1658; Add 1542 1542 1269; Mul 1443 840 1443;
  Mul 1269 486 1219; Add 1443 1443 1269; Sub 1542 1542 1443; Mul 1443 310 1673].
Definition casadi_f0_233 : list instruction := [
  Mul 1269 606 1672; Add 1443 1443 1269; Mul 1499 327 1499; Mul 1269 786 1481; Add 1499 1499 1269;
  Add 1443 1443 1499; Mul 1510 318 1510; Mul 1499 528 1403; Add 1510 1510 1499; Add 1443 1443 1510;
  Sub 1542 1542 1443; Mul 1443 536 1542; Mul 1510 844 1320; Add 1443 1443 1510; Sub 1471 1471 1443;
  Mul 1474 840 1474; Mul 1443 489 1219; Add 1474 1474 1443; Mul 1642 842 1642; Mul 1443 515 1522;
  Add 1642 1642 1443; Sub 1474 1474 1642; Mul 1052 310 1052; Mul 1642 705 1672; Add 1052 1052 1642;
  Mul 1673 327 1673; Mul 1642 606 1481; Add 1673 1673 1642; Add 1052 1052 1673; Mul 1504 318 1504;
  Mul 1673 510 1403; Add 1504 1504 1673; Add 1052 1052 1504; Sub 1474 1474 1052; Mul 1052 526 1474;
  Mul 1504 845 1566; Add 1052 1052 1504; Sub 1471 1471 1052; Add 1645 1645 1471; Add 1283 1283 1321;
  Mul 1321 800 1481; Mul 1036 327 1036; Add 1321 1321 1036; Mul 1036 643 1403; Mul 1643 318 1643;
  Add 1036 1036 1643; Add 1321 1321 1036; Add 1283 1283 1321; Mul 1321 540 1283; Mul 1036 843 1447;
  Sub 1321 1321 1036; Mul 1036 465 1672; Mul 1547 310 1547; Add 1036 1036 1547; Add 1601 1601 1253;
  Mul 1253 665 1403; Mul 1185 318 1185; Add 1253 1253 1185; Add 1601 1601 1253; Add 1036 1036 1601;
  Mul 1601 544 1036; Mul 1253 847 1696; Add 1601 1601 1253; Add 1321 1321 1601; Mul 1601 798 1664;
  Mul 1118 725 1118; Add 1601 1601 1118; Add 1606 1606 1255; Mul 1255 339 1609; Mul 1202 727 1202;
  Add 1255 1255 1202; Add 1606 1606 1255; Add 1601 1601 1606; Mul 1606 407 1672; Mul 1345 310 1345;
  Add 1606 1606 1345; Add 1617 1617 1170; Mul 1170 595 1403; Mul 1279 318 1279; Add 1170 1170 1279;
  Add 1617 1617 1170; Add 1606 1606 1617; Sub 1601 1601 1606; Mul 1601 216 1601; Mul 1606 848 1089;
  Sub 1601 1601 1606; Add 1398 1398 1533; Mul 1533 464 1625; Mul 1687 731 1687; Add 1533 1533 1687;
  Mul 1687 252 1609; Mul 1678 727 1678; Add 1687 1687 1678; Add 1533 1533 1687; Add 1398 1398 1533;
  Add 1123 1123 1430; Mul 1430 361 1481; Mul 1674 327 1674; Add 1430 1430 1674; Mul 1674 620 1403;
  Mul 1570 318 1570; Add 1674 1674 1570; Add 1430 1430 1674; Add 1123 1123 1430; Sub 1398 1398 1123;
  Mul 1398 215 1398; Mul 1123 850 1204; Add 1398 1398 1123; Sub 1123 1601 1398; Add 1321 1321 1123;
  Add 1645 1645 1321; Mul 1645 1 1645; Mul 1321 838 1090; Add 1645 1645 1321; Add 1265 1265 1645;
  Mul 1645 678 1658; Mul 1321 831 1300; Add 1645 1645 1321; Mul 1321 673 1522; Mul 1430 842 1485;
  Add 1321 1321 1430; Mul 1430 799 1219; Mul 1674 840 1667; Add 1430 1430 1674; Add 1321 1321 1430;
  Add 1645 1645 1321; Mul 1321 602 1474; Mul 1430 845 1149; Add 1321 1321 1430; Mul 1430 670 1542;
  Mul 1674 844 1329; Add 1430 1430 1674; Mul 1674 671 1268; Mul 1570 841 1113; Add 1674 1674 1570;
  Sub 1430 1430 1674; Add 1321 1321 1430; Add 1645 1645 1321; Mul 1321 785 1672; Mul 1653 310 1653;
  Add 1321 1321 1653; Mul 1653 306 1481; Mul 1121 327 1121; Add 1653 1653 1121; Add 1302 1302 1524;
  Add 1653 1653 1302; Add 1321 1321 1653; Mul 1653 676 1321; Mul 1302 853 1599].
Definition casadi_f0_234 : list instruction := [
  Add 1653 1653 1302; Mul 1302 680 1036; Mul 1524 847 1303; Add 1302 1302 1524; Sub 1653 1653 1302;
  Mul 1302 674 1283; Mul 1524 843 1581; Sub 1302 1302 1524; Sub 1653 1653 1302; Sub 1398 1398 1601;
  Add 1653 1653 1398; Add 1645 1645 1653; Mul 1645 2 1645; Mul 1653 846 1506; Add 1645 1645 1653;
  Add 1265 1265 1645; Mul 1658 717 1658; Mul 1645 831 1019; Add 1658 1658 1645; Mul 1219 787 1219;
  Mul 1645 840 1287; Add 1219 1219 1645; Mul 1522 713 1522; Mul 1645 842 1577; Add 1522 1522 1645;
  Sub 1219 1219 1522; Add 1658 1658 1219; Mul 1268 677 1268; Mul 1219 841 1449; Add 1268 1268 1219;
  Mul 1542 712 1542; Mul 1219 844 1162; Add 1542 1542 1219; Sub 1268 1268 1542; Mul 1474 706 1474;
  Mul 1542 845 1679; Add 1474 1474 1542; Sub 1268 1268 1474; Add 1658 1658 1268; Mul 1283 714 1283;
  Mul 1268 843 1576; Add 1283 1283 1268; Mul 1036 718 1036; Mul 1268 847 1209; Add 1036 1036 1268;
  Mul 1321 716 1321; Mul 1268 853 1375; Add 1321 1321 1268; Sub 1036 1036 1321; Add 1283 1283 1036;
  Add 1283 1283 1123; Add 1658 1658 1283; Mul 1658 3 1658; Mul 1283 854 1691; Add 1658 1658 1283;
  Add 1265 1265 1658; Mul 1658 811 1664; Mul 1137 725 1137; Add 1658 1658 1137; Mul 1137 813 1625;
  Mul 1215 731 1215; Add 1137 1137 1215; Mul 1215 802 1609; Mul 1501 727 1501; Add 1215 1215 1501;
  Add 1137 1137 1215; Add 1658 1658 1137; Mul 1137 807 1672; Mul 1500 310 1500; Add 1137 1137 1500;
  Mul 1500 690 1481; Mul 1025 327 1025; Add 1500 1500 1025; Mul 1025 720 1403; Mul 1458 318 1458;
  Add 1025 1025 1458; Add 1500 1500 1025; Add 1137 1137 1500; Sub 1658 1658 1137; Mul 1658 4 1658;
  Mul 1137 851 1101; Add 1658 1658 1137; Add 1265 1265 1658; Mul 1658 820 1664; Mul 1137 725 1324;
  Add 1658 1658 1137; Mul 1137 822 1625; Mul 1500 731 1466; Add 1137 1137 1500; Mul 1500 788 1609;
  Mul 1025 727 1408; Add 1500 1500 1025; Add 1137 1137 1500; Add 1658 1658 1137; Mul 1137 817 1672;
  Mul 1500 310 1564; Add 1137 1137 1500; Mul 1500 814 1481; Mul 1025 327 1235; Add 1500 1500 1025;
  Mul 1025 732 1403; Mul 1458 318 1103; Add 1025 1025 1458; Add 1500 1500 1025; Add 1137 1137 1500;
  Sub 1658 1658 1137; Mul 1658 5 1658; Mul 1137 852 1349; Add 1658 1658 1137; Add 1265 1265 1658;
  Sub 1439 1439 1265; Mul 1265 761 1439; Add 1247 1247 1265; Add 1077 1077 1247; Div 1247 1020 92;
  Mul 1265 1619 1639; Sub 1247 1247 1265; Mul 1265 833 1247; Mul 1658 645 1578; Mul 1167 736 1167;
  Add 1658 1658 1167; Mul 1167 666 1507; Mul 1122 741 1122; Add 1167 1167 1122; Add 1291 1291 1354;
  Add 1167 1167 1291; Add 1658 1658 1167; Mul 1167 593 1470; Mul 1582 358 1582; Add 1167 1167 1582;
  Mul 1582 36 1307; Mul 1544 372 1544; Add 1582 1582 1544; Add 1688 1688 1124; Add 1582 1582 1688;
  Add 1167 1167 1582; Sub 1658 1658 1167; Mul 1167 0 1658; Mul 1038 849 1038; Add 1167 1167 1038;
  Mul 1038 372 1406; Mul 1582 438 1307; Add 1038 1038 1582; Mul 1582 369 1144; Mul 1688 434 1587;
  Add 1582 1582 1688; Sub 1038 1038 1582; Sub 1038 1578 1038; Mul 1038 430 1038].
Definition casadi_f0_235 : list instruction := [
  Mul 1582 545 1038; Mul 1281 856 1281; Add 1582 1582 1281; Mul 1281 358 1144; Mul 1688 434 1470;
  Add 1281 1281 1688; Mul 1688 372 1640; Mul 1124 445 1307; Add 1688 1688 1124; Sub 1281 1281 1688;
  Sub 1281 1476 1281; Mul 1281 430 1281; Mul 1688 504 1281; Mul 1179 858 1179; Add 1688 1688 1179;
  Mul 1179 369 1640; Mul 1124 445 1587; Add 1179 1179 1124; Mul 1124 358 1406; Mul 1544 438 1470;
  Add 1124 1124 1544; Sub 1179 1179 1124; Sub 1179 1507 1179; Mul 1179 430 1179; Mul 1124 541 1179;
  Mul 1518 860 1518; Add 1124 1124 1518; Sub 1688 1688 1124; Add 1582 1582 1688; Mul 1688 860 1640;
  Mul 1124 445 1179; Add 1688 1688 1124; Mul 1124 856 1144; Mul 1518 434 1038; Add 1124 1124 1518;
  Sub 1688 1688 1124; Mul 1124 358 1111; Mul 1518 443 1470; Add 1124 1124 1518; Mul 1518 372 1251;
  Mul 1544 426 1307; Add 1518 1518 1544; Add 1124 1124 1518; Mul 1313 369 1313; Mul 1518 478 1587;
  Add 1313 1313 1518; Add 1124 1124 1313; Sub 1688 1688 1124; Mul 1124 508 1688; Mul 1434 859 1434;
  Add 1124 1124 1434; Mul 1434 856 1406; Mul 1313 438 1038; Add 1434 1434 1313; Mul 1640 858 1640;
  Mul 1313 445 1281; Add 1640 1640 1313; Sub 1434 1434 1640; Mul 1640 358 1022; Mul 1313 609 1470;
  Add 1640 1640 1313; Mul 1662 372 1662; Mul 1313 604 1307; Add 1662 1662 1313; Add 1640 1640 1662;
  Mul 1251 369 1251; Mul 1662 426 1587; Add 1251 1251 1662; Add 1640 1640 1251; Sub 1434 1434 1640;
  Mul 1640 536 1434; Mul 1320 862 1320; Add 1640 1640 1320; Sub 1124 1124 1640; Mul 1144 858 1144;
  Mul 1640 434 1281; Add 1144 1144 1640; Mul 1406 860 1406; Mul 1640 438 1179; Add 1406 1406 1640;
  Sub 1144 1144 1406; Mul 1406 13 1470; Mul 1277 358 1277; Sub 1406 1406 1277; Mul 1022 372 1022;
  Mul 1277 609 1307; Add 1022 1022 1277; Add 1406 1406 1022; Mul 1111 369 1111; Mul 1022 443 1587;
  Add 1111 1111 1022; Add 1406 1406 1111; Sub 1144 1144 1406; Mul 1406 526 1144; Mul 1566 863 1566;
  Add 1406 1406 1566; Sub 1124 1124 1406; Add 1582 1582 1124; Add 1088 1088 1559; Mul 1559 803 1307;
  Mul 1445 372 1445; Add 1559 1559 1445; Mul 1445 648 1587; Mul 1236 369 1236; Add 1445 1445 1236;
  Add 1559 1559 1445; Add 1088 1088 1559; Mul 1559 540 1088; Mul 1447 861 1447; Sub 1559 1559 1447;
  Mul 1447 394 1470; Mul 1663 358 1663; Add 1447 1447 1663; Add 1213 1213 1361; Mul 1361 669 1587;
  Mul 1561 369 1561; Add 1361 1361 1561; Add 1213 1213 1361; Add 1447 1447 1213; Mul 1213 544 1447;
  Mul 1696 865 1696; Add 1213 1213 1696; Add 1559 1559 1213; Mul 1213 801 1578; Mul 1161 736 1161;
  Add 1213 1213 1161; Add 1225 1225 1565; Mul 1565 355 1476; Mul 1117 738 1117; Add 1565 1565 1117;
  Add 1225 1225 1565; Add 1213 1213 1225; Mul 1225 359 1470; Mul 1347 358 1347; Add 1225 1225 1347;
  Add 1468 1468 1502; Mul 1502 608 1587; Mul 1314 369 1314; Add 1502 1502 1314; Add 1468 1468 1502;
  Add 1225 1225 1468; Sub 1213 1213 1225; Mul 1225 216 1213; Mul 1089 866 1089; Sub 1225 1225 1089;
  Add 1424 1424 1280; Mul 1280 457 1507; Mul 1094 741 1094; Add 1280 1280 1094].
Definition casadi_f0_236 : list instruction := [
  Mul 1094 234 1476; Mul 1231 738 1231; Add 1094 1094 1231; Add 1280 1280 1094; Add 1424 1424 1280;
  Add 1410 1410 1282; Mul 1282 352 1307; Mul 1671 372 1671; Add 1282 1282 1671; Mul 1671 622 1587;
  Mul 1242 369 1242; Add 1671 1671 1242; Add 1282 1282 1671; Add 1410 1410 1282; Sub 1424 1424 1410;
  Mul 1410 215 1424; Mul 1204 868 1204; Add 1410 1410 1204; Sub 1204 1225 1410; Add 1559 1559 1204;
  Add 1582 1582 1559; Mul 1582 1 1582; Mul 1090 857 1090; Add 1582 1582 1090; Add 1167 1167 1582;
  Mul 1582 678 1038; Mul 1300 856 1300; Add 1582 1582 1300; Mul 1300 673 1179; Mul 1485 860 1485;
  Add 1300 1300 1485; Mul 1485 799 1281; Mul 1667 858 1667; Add 1485 1485 1667; Add 1300 1300 1485;
  Add 1582 1582 1300; Mul 1300 602 1144; Mul 1149 863 1149; Add 1300 1300 1149; Mul 1149 670 1434;
  Mul 1329 862 1329; Add 1149 1149 1329; Mul 1329 671 1688; Mul 1113 859 1113; Add 1329 1329 1113;
  Sub 1149 1149 1329; Add 1300 1300 1149; Add 1582 1582 1300; Mul 1300 245 1470; Mul 1552 358 1552;
  Add 1300 1300 1552; Mul 1552 356 1307; Mul 1254 372 1254; Add 1552 1552 1254; Add 1699 1699 1109;
  Add 1552 1552 1699; Add 1300 1300 1552; Mul 1552 676 1300; Mul 1599 871 1599; Add 1552 1552 1599;
  Mul 1599 680 1447; Mul 1303 865 1303; Add 1599 1599 1303; Sub 1552 1552 1599; Mul 1599 674 1088;
  Mul 1581 861 1581; Sub 1599 1599 1581; Sub 1552 1552 1599; Sub 1410 1410 1225; Add 1552 1552 1410;
  Add 1582 1582 1552; Mul 1582 2 1582; Mul 1506 864 1506; Add 1582 1582 1506; Add 1167 1167 1582;
  Mul 1582 717 1038; Mul 1019 856 1019; Add 1582 1582 1019; Mul 1019 787 1281; Mul 1287 858 1287;
  Add 1019 1019 1287; Mul 1287 713 1179; Mul 1577 860 1577; Add 1287 1287 1577; Sub 1019 1019 1287;
  Add 1582 1582 1019; Mul 1019 677 1688; Mul 1449 859 1449; Add 1019 1019 1449; Mul 1449 712 1434;
  Mul 1162 862 1162; Add 1449 1449 1162; Sub 1019 1019 1449; Mul 1449 706 1144; Mul 1679 863 1679;
  Add 1449 1449 1679; Sub 1019 1019 1449; Add 1582 1582 1019; Mul 1019 714 1088; Mul 1576 861 1576;
  Add 1019 1019 1576; Mul 1576 718 1447; Mul 1209 865 1209; Add 1576 1576 1209; Mul 1209 716 1300;
  Mul 1375 871 1375; Add 1209 1209 1375; Sub 1576 1576 1209; Add 1019 1019 1576; Add 1019 1019 1204;
  Add 1582 1582 1019; Mul 1582 3 1582; Mul 1691 872 1691; Add 1582 1582 1691; Add 1167 1167 1582;
  Mul 1038 729 1038; Mul 1193 856 1193; Add 1038 1038 1193; Mul 1179 724 1179; Mul 1608 860 1608;
  Add 1179 1179 1608; Mul 1281 688 1281; Mul 1636 858 1636; Add 1281 1281 1636; Add 1179 1179 1281;
  Add 1038 1038 1179; Mul 1144 715 1144; Mul 1575 863 1575; Add 1144 1144 1575; Mul 1434 721 1434;
  Mul 1457 862 1457; Add 1434 1434 1457; Mul 1688 722 1688; Mul 1105 859 1105; Add 1688 1688 1105;
  Add 1434 1434 1688; Add 1144 1144 1434; Add 1038 1038 1144; Mul 1088 725 1088; Mul 1664 861 1664;
  Add 1088 1088 1664; Mul 1447 731 1447; Mul 1625 865 1625; Add 1447 1447 1625; Mul 1300 727 1300;
  Mul 1609 871 1609; Add 1300 1300 1609; Add 1447 1447 1300; Add 1088 1088 1447].
Definition casadi_f0_237 : list instruction := [
  Mul 1424 310 1424; Mul 1672 868 1672; Add 1424 1424 1672; Mul 1213 327 1213; Mul 1481 866 1481;
  Add 1213 1213 1481; Mul 1658 318 1658; Mul 1403 849 1403; Add 1658 1658 1403; Add 1213 1213 1658;
  Add 1424 1424 1213; Add 1088 1088 1424; Sub 1038 1038 1088; Mul 1038 4 1038; Mul 1101 869 1101;
  Add 1038 1038 1101; Add 1167 1167 1038; Mul 1578 820 1578; Mul 1324 736 1324; Add 1578 1578 1324;
  Mul 1507 822 1507; Mul 1466 741 1466; Add 1507 1507 1466; Mul 1476 788 1476; Mul 1408 738 1408;
  Add 1476 1476 1408; Add 1507 1507 1476; Add 1578 1578 1507; Mul 1470 817 1470; Mul 1564 358 1564;
  Add 1470 1470 1564; Mul 1307 814 1307; Mul 1235 372 1235; Add 1307 1307 1235; Mul 1587 732 1587;
  Mul 1103 369 1103; Add 1587 1587 1103; Add 1307 1307 1587; Add 1470 1470 1307; Sub 1578 1578 1470;
  Mul 1578 5 1578; Mul 1349 870 1349; Add 1578 1578 1349; Add 1167 1167 1578; Sub 1226 1226 1167;
  Mul 1167 754 1226; Add 1265 1265 1167; Add 1077 1077 1265; Mul 1265 210 1020; Mul 1167 200 1240;
  Add 1265 1265 1167; Mul 1035 19 1035; Mul 1167 196 1186; Sub 1035 1035 1167; Mul 1167 189 1145;
  Mul 1612 35 1612; Sub 1167 1167 1612; Sub 1035 1035 1167; Mul 1657 55 1657; Mul 1482 62 1482;
  Add 1657 1657 1482; Add 1035 1035 1657; Mul 1521 86 1521; Mul 1159 91 1159; Add 1521 1521 1159;
  Add 1521 1035 1521; Mul 1083 102 1083; Sub 1083 1521 1083; Mul 1159 777 1083; Mul 1657 209 1413;
  Add 1159 1159 1657; Add 1265 1265 1159; Mul 1159 778 1521; Mul 1657 867 1374; Add 1159 1159 1657;
  Add 1265 1265 1159; Mul 1159 769 1035; Mul 1657 855 1459; Add 1159 1159 1657; Add 1265 1265 1159;
  Mul 1159 761 1451; Mul 1657 201 1505; Add 1159 1159 1657; Sub 1265 1265 1159; Mul 1159 873 1247;
  Add 1265 1265 1159; Mul 1159 1006 1265; Mul 1657 210 1265; Mul 1482 756 1240; Add 1657 1657 1482;
  Sub 1020 1020 1657; Mul 1657 881 1020; Mul 1482 210 1560; Mul 1167 143 1240; Add 1482 1482 1167;
  Sub 1683 1683 1611; Sub 1680 1680 1211; Mul 1680 37 1680; Add 1683 1683 1680; Sub 1126 1126 1685;
  Mul 1126 80 1126; Add 1126 1683 1126; Sub 1676 1676 1217; Mul 1676 100 1676; Add 1676 1126 1676;
  Mul 1632 1064 1632; Mul 1567 1061 1567; Add 1632 1632 1567; Mul 1632 141 1632; Add 1676 1676 1632;
  Mul 1632 777 1676; Mul 1567 876 1413; Add 1632 1632 1567; Add 1482 1482 1632; Mul 1049 151 1049;
  Mul 1453 103 1453; Add 1049 1049 1453; Mul 1508 148 1508; Mul 1076 105 1076; Add 1508 1508 1076;
  Sub 1049 1049 1508; Sub 1049 1049 1126; Mul 1174 102 1174; Sub 1174 1049 1174; Mul 1126 778 1174;
  Mul 1508 153 1374; Add 1126 1126 1508; Sub 1482 1482 1126; Mul 1082 1057 1082; Mul 1689 1065 1689;
  Sub 1082 1082 1689; Mul 1082 156 1082; Add 1683 1683 1082; Mul 1136 86 1136; Mul 1148 91 1148;
  Sub 1136 1136 1148; Add 1136 1683 1136; Mul 1053 102 1053; Sub 1053 1136 1053; Mul 1148 769 1053;
  Mul 1082 171 1459; Add 1148 1148 1082; Add 1482 1482 1148; Mul 1145 180 1145; Mul 1024 35 1024;
  Add 1145 1145 1024; Mul 1290 19 1290; Mul 1186 182 1186; Sub 1290 1290 1186].
Definition casadi_f0_238 : list instruction := [
  Sub 1145 1145 1290; Mul 1048 55 1048; Add 1145 1145 1048; Mul 1037 86 1037; Mul 1157 91 1157;
  Add 1037 1037 1157; Add 1037 1145 1037; Mul 1198 102 1198; Sub 1198 1037 1198; Mul 1157 761 1198;
  Mul 1048 188 1505; Add 1157 1157 1048; Add 1482 1482 1157; Mul 1157 754 1083; Mul 1048 209 1247;
  Add 1157 1157 1048; Add 1482 1482 1157; Mul 1157 210 1482; Mul 1048 875 1240; Add 1157 1157 1048;
  Sub 1560 1560 1157; Div 1157 1560 65; Mul 1560 89 1560; Mul 1048 777 1482; Mul 1290 875 1413;
  Add 1048 1048 1290; Sub 1676 1676 1048; Mul 1048 58 1676; Add 1560 1560 1048; Mul 1048 778 1482;
  Mul 1290 875 1374; Add 1048 1048 1290; Add 1048 1174 1048; Mul 1290 45 1048; Add 1560 1560 1290;
  Mul 1290 769 1482; Mul 1186 875 1459; Add 1290 1290 1186; Sub 1290 1053 1290; Mul 1186 22 1290;
  Add 1560 1560 1186; Mul 1186 761 1482; Mul 1024 875 1505; Add 1186 1186 1024; Sub 1186 1198 1186;
  Mul 1024 879 1186; Add 1560 1560 1024; Mul 1024 754 1482; Mul 1148 875 1247; Add 1024 1024 1148;
  Sub 1024 1083 1024; Mul 1148 880 1024; Add 1560 1560 1148; Div 1560 1560 1045; Mul 1148 1078 1560;
  Sub 1157 1157 1148; Mul 1148 874 1157; Add 1657 1657 1148; Mul 1148 777 1265; Mul 1082 756 1413;
  Add 1148 1148 1082; Sub 1083 1083 1148; Mul 1148 884 1083; Div 1676 1676 65; Mul 1082 1029 1560;
  Sub 1676 1676 1082; Mul 1082 883 1676; Add 1148 1148 1082; Add 1657 1657 1148; Mul 1148 778 1265;
  Mul 1082 756 1374; Add 1148 1148 1082; Sub 1148 1148 1521; Mul 1082 886 1148; Div 1048 1048 65;
  Mul 1689 1063 1560; Sub 1048 1048 1689; Mul 1689 885 1048; Add 1082 1082 1689; Add 1657 1657 1082;
  Mul 1082 769 1265; Mul 1689 756 1459; Add 1082 1082 1689; Sub 1082 1035 1082; Mul 1689 888 1082;
  Div 1290 1290 65; Mul 1126 1040 1560; Sub 1290 1290 1126; Mul 1126 887 1290; Add 1689 1689 1126;
  Add 1657 1657 1689; Mul 1689 761 1265; Mul 1126 756 1505; Add 1689 1689 1126; Add 1689 1451 1689;
  Mul 1126 890 1689; Div 1186 1186 65; Mul 1508 1027 1560; Sub 1186 1186 1508; Mul 1508 889 1186;
  Add 1126 1126 1508; Sub 1657 1657 1126; Div 1024 1024 65; Mul 1126 1046 1560; Sub 1024 1024 1126;
  Mul 1126 891 1024; Mul 1265 754 1265; Mul 1508 756 1247; Add 1265 1265 1508; Mul 1508 892 1265;
  Sub 1126 1126 1508; Add 1657 1657 1126; Mul 1126 881 1657; Mul 1508 882 1157; Add 1126 1126 1508;
  Sub 1020 1020 1126; Mul 1126 884 1657; Mul 1508 882 1676; Add 1126 1126 1508; Sub 1083 1083 1126;
  Mul 1126 910 1083; Mul 1508 777 1174; Mul 1076 153 1413; Add 1508 1508 1076; Mul 1076 210 1232;
  Mul 1453 154 1240; Add 1076 1076 1453; Sub 1508 1508 1076; Mul 1076 778 1049; Mul 1453 106 1374;
  Add 1076 1076 1453; Add 1508 1508 1076; Mul 1076 769 1136; Mul 1453 877 1459; Add 1076 1076 1453;
  Sub 1508 1508 1076; Mul 1076 761 1037; Mul 1453 94 1505; Add 1076 1076 1453; Sub 1508 1508 1076;
  Mul 1076 754 1521; Mul 1453 867 1247; Add 1076 1076 1453; Sub 1508 1508 1076; Mul 1076 777 1508;
  Mul 1453 895 1413; Add 1076 1076 1453; Sub 1174 1174 1076; Mul 1076 884 1174].
Definition casadi_f0_239 : list instruction := [
  Mul 1453 896 1676; Add 1076 1076 1453; Mul 1453 210 1508; Mul 1632 895 1240; Add 1453 1453 1632;
  Add 1232 1232 1453; Mul 1453 881 1232; Mul 1632 898 1157; Add 1453 1453 1632; Sub 1076 1076 1453;
  Mul 1453 778 1508; Mul 1632 895 1374; Add 1453 1453 1632; Sub 1453 1453 1049; Mul 1049 886 1453;
  Mul 1632 899 1048; Add 1049 1049 1632; Add 1076 1076 1049; Mul 1049 769 1508; Mul 1632 895 1459;
  Add 1049 1049 1632; Add 1049 1136 1049; Mul 1632 888 1049; Mul 1567 900 1290; Add 1632 1632 1567;
  Sub 1076 1076 1632; Mul 1632 761 1508; Mul 1567 895 1505; Add 1632 1632 1567; Add 1632 1037 1632;
  Mul 1567 890 1632; Mul 1217 901 1186; Add 1567 1567 1217; Sub 1076 1076 1567; Mul 1567 754 1508;
  Mul 1217 895 1247; Add 1567 1567 1217; Add 1521 1521 1567; Mul 1567 892 1521; Mul 1217 902 1024;
  Add 1567 1567 1217; Sub 1076 1076 1567; Mul 1567 884 1076; Mul 1217 897 1676; Add 1567 1567 1217;
  Sub 1174 1174 1567; Div 1567 1174 905; Mul 1217 881 1076; Mul 1685 897 1157; Add 1217 1217 1685;
  Add 1232 1232 1217; Mul 1217 904 1232; Mul 1174 903 1174; Add 1217 1217 1174; Mul 1174 886 1076;
  Mul 1685 897 1048; Add 1174 1174 1685; Sub 1453 1453 1174; Mul 1174 906 1453; Add 1217 1217 1174;
  Mul 1174 888 1076; Mul 1685 897 1290; Add 1174 1174 1685; Add 1049 1049 1174; Mul 1174 907 1049;
  Add 1217 1217 1174; Mul 1174 890 1076; Mul 1685 897 1186; Add 1174 1174 1685; Add 1632 1632 1174;
  Mul 1174 908 1632; Add 1217 1217 1174; Mul 1174 892 1076; Mul 1685 897 1024; Add 1174 1174 1685;
  Add 1521 1521 1174; Mul 1174 909 1521; Add 1217 1217 1174; Div 1217 1217 1067; Mul 1174 1214 1217;
  Sub 1567 1567 1174; Mul 1174 894 1567; Add 1126 1126 1174; Mul 1174 912 1020; Div 1232 1232 905;
  Mul 1685 1614 1217; Sub 1232 1232 1685; Mul 1685 893 1232; Add 1174 1174 1685; Sub 1126 1126 1174;
  Mul 1174 886 1657; Mul 1685 882 1048; Add 1174 1174 1685; Sub 1148 1148 1174; Mul 1174 914 1148;
  Div 1453 1453 905; Mul 1685 1273 1217; Sub 1453 1453 1685; Mul 1685 913 1453; Add 1174 1174 1685;
  Add 1126 1126 1174; Mul 1174 888 1657; Mul 1685 882 1290; Add 1174 1174 1685; Sub 1082 1082 1174;
  Mul 1174 916 1082; Div 1049 1049 905; Mul 1685 1260 1217; Sub 1049 1049 1685; Mul 1685 915 1049;
  Add 1174 1174 1685; Sub 1126 1126 1174; Mul 1174 890 1657; Mul 1685 882 1186; Add 1174 1174 1685;
  Add 1689 1689 1174; Mul 1174 918 1689; Div 1632 1632 905; Mul 1685 1249 1217; Sub 1632 1632 1685;
  Mul 1685 917 1632; Add 1174 1174 1685; Add 1126 1126 1174; Div 1521 1521 905; Mul 1174 1569 1217;
  Sub 1521 1521 1174; Mul 1174 919 1521; Mul 1685 892 1657; Mul 1680 882 1024; Add 1685 1685 1680;
  Add 1265 1265 1685; Mul 1685 920 1265; Sub 1174 1174 1685; Sub 1126 1126 1174; Mul 1174 912 1126;
  Mul 1685 911 1232; Add 1174 1174 1685; Add 1020 1020 1174; Mul 1174 944 1020; Mul 1685 210 1028;
  Mul 1680 168 1240; Add 1685 1685 1680; Mul 1680 777 1053; Mul 1211 171 1413; Add 1680 1680 1211;
  Add 1685 1685 1680; Mul 1680 778 1136; Mul 1211 877 1374; Add 1680 1680 1211].
Definition casadi_f0_240 : list instruction := [
  Add 1685 1685 1680; Mul 1680 769 1683; Mul 1211 878 1459; Add 1680 1680 1211; Add 1685 1685 1680;
  Mul 1680 761 1145; Mul 1211 98 1505; Add 1680 1680 1211; Add 1685 1685 1680; Mul 1680 754 1035;
  Mul 1211 855 1247; Add 1680 1680 1211; Add 1685 1685 1680; Mul 1680 210 1685; Mul 1211 922 1240;
  Add 1680 1680 1211; Sub 1028 1028 1680; Mul 1680 881 1028; Mul 1211 923 1157; Add 1680 1680 1211;
  Mul 1211 777 1685; Mul 1611 922 1413; Add 1211 1211 1611; Sub 1053 1053 1211; Mul 1211 884 1053;
  Mul 1611 925 1676; Add 1211 1211 1611; Add 1680 1680 1211; Mul 1211 778 1685; Mul 1611 922 1374;
  Add 1211 1211 1611; Sub 1211 1211 1136; Mul 1136 886 1211; Mul 1611 926 1048; Add 1136 1136 1611;
  Add 1680 1680 1136; Mul 1136 769 1685; Mul 1611 922 1459; Add 1136 1136 1611; Sub 1683 1683 1136;
  Mul 1136 888 1683; Mul 1611 927 1290; Add 1136 1136 1611; Add 1680 1680 1136; Mul 1136 761 1685;
  Mul 1611 922 1505; Add 1136 1136 1611; Sub 1136 1145 1136; Mul 1611 890 1136; Mul 1167 928 1186;
  Add 1611 1611 1167; Add 1680 1680 1611; Mul 1611 754 1685; Mul 1167 922 1247; Add 1611 1611 1167;
  Sub 1035 1035 1611; Mul 1611 892 1035; Mul 1167 929 1024; Add 1611 1611 1167; Add 1680 1680 1611;
  Mul 1611 881 1680; Mul 1167 924 1157; Add 1611 1611 1167; Sub 1028 1028 1611; Mul 1611 884 1680;
  Mul 1167 924 1676; Add 1611 1611 1167; Sub 1053 1053 1611; Mul 1611 910 1053; Mul 1167 931 1567;
  Add 1611 1611 1167; Mul 1167 912 1028; Mul 1612 930 1232; Add 1167 1167 1612; Sub 1611 1611 1167;
  Mul 1167 886 1680; Mul 1612 924 1048; Add 1167 1167 1612; Sub 1211 1211 1167; Mul 1167 914 1211;
  Mul 1612 933 1453; Add 1167 1167 1612; Add 1611 1611 1167; Mul 1167 888 1680; Mul 1612 924 1290;
  Add 1167 1167 1612; Sub 1683 1683 1167; Mul 1167 916 1683; Mul 1612 934 1049; Add 1167 1167 1612;
  Sub 1611 1611 1167; Mul 1167 890 1680; Mul 1612 924 1186; Add 1167 1167 1612; Sub 1136 1136 1167;
  Mul 1167 918 1136; Mul 1612 935 1632; Add 1167 1167 1612; Sub 1611 1611 1167; Mul 1167 892 1680;
  Mul 1612 924 1024; Add 1167 1167 1612; Sub 1035 1035 1167; Mul 1167 920 1035; Mul 1612 936 1521;
  Add 1167 1167 1612; Sub 1611 1611 1167; Mul 1167 912 1611; Mul 1612 932 1232; Add 1167 1167 1612;
  Add 1028 1028 1167; Div 1167 1028 938; Mul 1028 937 1028; Mul 1612 910 1611; Mul 1578 932 1567;
  Add 1612 1612 1578; Sub 1053 1053 1612; Mul 1612 939 1053; Add 1028 1028 1612; Mul 1612 914 1611;
  Mul 1578 932 1453; Add 1612 1612 1578; Sub 1211 1211 1612; Mul 1612 940 1211; Add 1028 1028 1612;
  Mul 1612 916 1611; Mul 1578 932 1049; Add 1612 1612 1578; Add 1683 1683 1612; Mul 1612 941 1683;
  Add 1028 1028 1612; Mul 1612 918 1611; Mul 1578 932 1632; Add 1612 1612 1578; Add 1136 1136 1612;
  Mul 1612 942 1136; Add 1028 1028 1612; Mul 1612 920 1611; Mul 1578 932 1521; Add 1612 1612 1578;
  Add 1035 1035 1612; Mul 1612 943 1035; Add 1028 1028 1612; Div 1028 1028 1615; Mul 1612 1446 1028;
  Sub 1167 1167 1612; Mul 1612 921 1167; Add 1174 1174 1612; Mul 1612 910 1126].
Definition casadi_f0_241 : list instruction := [
  Mul 1578 911 1567; Add 1612 1612 1578; Sub 1083 1083 1612; Mul 1612 947 1083; Div 1053 1053 938;
  Mul 1578 1184 1028; Sub 1053 1053 1578; Mul 1578 946 1053; Add 1612 1612 1578; Add 1174 1174 1612;
  Mul 1612 914 1126; Mul 1578 911 1453; Add 1612 1612 1578; Sub 1148 1148 1612; Mul 1612 949 1148;
  Div 1211 1211 938; Mul 1578 1160 1028; Sub 1211 1211 1578; Mul 1578 948 1211; Add 1612 1612 1578;
  Add 1174 1174 1612; Mul 1612 916 1126; Mul 1578 911 1049; Add 1612 1612 1578; Add 1082 1082 1612;
  Mul 1612 951 1082; Div 1683 1683 938; Mul 1578 1328 1028; Sub 1683 1683 1578; Mul 1578 950 1683;
  Add 1612 1612 1578; Add 1174 1174 1612; Mul 1612 918 1126; Mul 1578 911 1632; Add 1612 1612 1578;
  Sub 1612 1612 1689; Mul 1689 953 1612; Div 1136 1136 938; Mul 1578 1155 1028; Sub 1136 1136 1578;
  Mul 1578 952 1136; Add 1689 1689 1578; Add 1174 1174 1689; Mul 1689 920 1126; Mul 1578 911 1521;
  Add 1689 1689 1578; Sub 1689 1689 1265; Mul 1265 955 1689; Div 1035 1035 938; Mul 1578 1220 1028;
  Sub 1035 1035 1578; Mul 1578 954 1035; Add 1265 1265 1578; Add 1174 1174 1265; Mul 1265 944 1174;
  Mul 1578 945 1167; Add 1265 1265 1578; Sub 1020 1020 1265; Mul 1265 986 1020; Mul 1578 210 1385;
  Mul 1349 175 1240; Add 1578 1578 1349; Mul 1349 777 1198; Mul 1470 188 1413; Add 1349 1349 1470;
  Add 1578 1578 1349; Mul 1349 778 1037; Mul 1470 94 1374; Add 1349 1349 1470; Add 1578 1578 1349;
  Mul 1349 769 1145; Mul 1470 98 1459; Add 1349 1349 1470; Add 1578 1578 1349; Mul 1349 761 1638;
  Mul 1470 172 1505; Add 1349 1349 1470; Sub 1578 1578 1349; Mul 1349 754 1451; Mul 1470 201 1247;
  Add 1349 1349 1470; Sub 1578 1578 1349; Mul 1349 210 1578; Mul 1240 957 1240; Add 1349 1349 1240;
  Sub 1385 1385 1349; Mul 1349 881 1385; Mul 1240 958 1157; Add 1349 1349 1240; Mul 1240 777 1578;
  Mul 1413 957 1413; Add 1240 1240 1413; Sub 1198 1198 1240; Mul 1240 884 1198; Mul 1413 960 1676;
  Add 1240 1240 1413; Add 1349 1349 1240; Mul 1240 778 1578; Mul 1374 957 1374; Add 1240 1240 1374;
  Sub 1240 1240 1037; Mul 1037 886 1240; Mul 1374 961 1048; Add 1037 1037 1374; Add 1349 1349 1037;
  Mul 1037 769 1578; Mul 1459 957 1459; Add 1037 1037 1459; Sub 1145 1145 1037; Mul 1037 888 1145;
  Mul 1459 962 1290; Add 1037 1037 1459; Add 1349 1349 1037; Mul 1037 761 1578; Mul 1505 957 1505;
  Add 1037 1037 1505; Add 1638 1638 1037; Mul 1037 890 1638; Mul 1505 963 1186; Add 1037 1037 1505;
  Sub 1349 1349 1037; Mul 1037 754 1578; Mul 1247 957 1247; Add 1037 1037 1247; Add 1451 1451 1037;
  Mul 1037 892 1451; Mul 1247 964 1024; Add 1037 1037 1247; Sub 1349 1349 1037; Mul 1037 881 1349;
  Mul 1247 959 1157; Add 1037 1037 1247; Sub 1385 1385 1037; Mul 1037 884 1349; Mul 1247 959 1676;
  Add 1037 1037 1247; Sub 1198 1198 1037; Mul 1037 910 1198; Mul 1247 966 1567; Add 1037 1037 1247;
  Mul 1247 912 1385; Mul 1505 965 1232; Add 1247 1247 1505; Sub 1037 1037 1247; Mul 1247 886 1349;
  Mul 1505 959 1048; Add 1247 1247 1505; Sub 1240 1240 1247; Mul 1247 914 1240].
Definition casadi_f0_242 : list instruction := [
  Mul 1505 968 1453; Add 1247 1247 1505; Add 1037 1037 1247; Mul 1247 888 1349; Mul 1505 959 1290;
  Add 1247 1247 1505; Sub 1145 1145 1247; Mul 1247 916 1145; Mul 1505 969 1049; Add 1247 1247 1505;
  Sub 1037 1037 1247; Mul 1247 890 1349; Mul 1505 959 1186; Add 1247 1247 1505; Add 1638 1638 1247;
  Mul 1247 918 1638; Mul 1505 970 1632; Add 1247 1247 1505; Add 1037 1037 1247; Mul 1247 892 1349;
  Mul 1505 959 1024; Add 1247 1247 1505; Add 1451 1451 1247; Mul 1247 920 1451; Mul 1505 971 1521;
  Add 1247 1247 1505; Add 1037 1037 1247; Mul 1247 912 1037; Mul 1505 967 1232; Add 1247 1247 1505;
  Add 1385 1385 1247; Mul 1247 944 1385; Mul 1505 972 1167; Add 1247 1247 1505; Mul 1505 910 1037;
  Mul 1459 967 1567; Add 1505 1505 1459; Sub 1198 1198 1505; Mul 1505 947 1198; Mul 1459 974 1053;
  Add 1505 1505 1459; Add 1247 1247 1505; Mul 1505 914 1037; Mul 1459 967 1453; Add 1505 1505 1459;
  Sub 1240 1240 1505; Mul 1505 949 1240; Mul 1459 975 1211; Add 1505 1505 1459; Add 1247 1247 1505;
  Mul 1505 916 1037; Mul 1459 967 1049; Add 1505 1505 1459; Add 1145 1145 1505; Mul 1505 951 1145;
  Mul 1459 976 1683; Add 1505 1505 1459; Add 1247 1247 1505; Mul 1505 918 1037; Mul 1459 967 1632;
  Add 1505 1505 1459; Sub 1505 1505 1638; Mul 1638 953 1505; Mul 1459 977 1136; Add 1638 1638 1459;
  Add 1247 1247 1638; Mul 1638 920 1037; Mul 1459 967 1521; Add 1638 1638 1459; Sub 1638 1638 1451;
  Mul 1451 955 1638; Mul 1459 978 1035; Add 1451 1451 1459; Add 1247 1247 1451; Mul 1451 944 1247;
  Mul 1459 973 1167; Add 1451 1451 1459; Sub 1385 1385 1451; Div 1451 1385 980; Mul 1385 979 1385;
  Mul 1459 947 1247; Mul 1374 973 1053; Add 1459 1459 1374; Sub 1198 1198 1459; Mul 1459 981 1198;
  Add 1385 1385 1459; Mul 1459 949 1247; Mul 1374 973 1211; Add 1459 1459 1374; Sub 1240 1240 1459;
  Mul 1459 982 1240; Add 1385 1385 1459; Mul 1459 951 1247; Mul 1374 973 1683; Add 1459 1459 1374;
  Sub 1145 1145 1459; Mul 1459 983 1145; Add 1385 1385 1459; Mul 1459 953 1247; Mul 1374 973 1136;
  Add 1459 1459 1374; Sub 1505 1505 1459; Mul 1459 984 1505; Add 1385 1385 1459; Mul 1459 955 1247;
  Mul 1374 973 1035; Add 1459 1459 1374; Sub 1638 1638 1459; Mul 1459 985 1638; Add 1385 1385 1459;
  Div 1385 1385 1630; Mul 1459 1629 1385; Sub 1451 1451 1459; Mul 1459 956 1451; Add 1265 1265 1459;
  Mul 1459 947 1174; Mul 1374 945 1053; Add 1459 1459 1374; Sub 1083 1083 1459; Mul 1459 989 1083;
  Div 1198 1198 980; Mul 1374 1262 1385; Sub 1198 1198 1374; Mul 1374 988 1198; Add 1459 1459 1374;
  Add 1265 1265 1459; Mul 1459 949 1174; Mul 1374 945 1211; Add 1459 1459 1374; Sub 1148 1148 1459;
  Mul 1459 991 1148; Div 1240 1240 980; Mul 1374 1306 1385; Sub 1240 1240 1374; Mul 1374 990 1240;
  Add 1459 1459 1374; Add 1265 1265 1459; Mul 1459 951 1174; Mul 1374 945 1683; Add 1459 1459 1374;
  Sub 1082 1082 1459; Mul 1459 993 1082; Div 1145 1145 980; Mul 1374 1626 1385; Sub 1145 1145 1374;
  Mul 1374 992 1145; Add 1459 1459 1374; Add 1265 1265 1459; Mul 1459 953 1174].
Definition casadi_f0_243 : list instruction := [
  Mul 1374 945 1136; Add 1459 1459 1374; Sub 1612 1612 1459; Mul 1459 995 1612; Div 1505 1505 980;
  Mul 1374 1530 1385; Sub 1505 1505 1374; Mul 1374 994 1505; Add 1459 1459 1374; Add 1265 1265 1459;
  Mul 1459 955 1174; Mul 1374 945 1035; Add 1459 1459 1374; Sub 1689 1689 1459; Mul 1459 997 1689;
  Div 1638 1638 980; Mul 1374 1472 1385; Sub 1638 1638 1374; Mul 1374 996 1638; Add 1459 1459 1374;
  Add 1265 1265 1459; Mul 1459 986 1265; Mul 1374 987 1451; Add 1459 1459 1374; Sub 1020 1020 1459;
  Div 1459 1020 999; Mul 1020 998 1020; Mul 1374 989 1265; Mul 1413 987 1198; Add 1374 1374 1413;
  Sub 1083 1083 1374; Mul 1374 1000 1083; Add 1020 1020 1374; Mul 1374 991 1265; Mul 1413 987 1240;
  Add 1374 1374 1413; Sub 1148 1148 1374; Mul 1374 1001 1148; Add 1020 1020 1374; Mul 1374 993 1265;
  Mul 1413 987 1145; Add 1374 1374 1413; Sub 1082 1082 1374; Mul 1374 1002 1082; Add 1020 1020 1374;
  Mul 1374 995 1265; Mul 1413 987 1505; Add 1374 1374 1413; Sub 1612 1612 1374; Mul 1374 1003 1612;
  Add 1020 1020 1374; Mul 1374 997 1265; Mul 1413 987 1638; Add 1374 1374 1413; Sub 1689 1689 1374;
  Mul 1374 1004 1689; Add 1020 1020 1374; Div 1020 1020 1095; Mul 1374 1596 1020; Sub 1459 1459 1374;
  Mul 1459 211 1459; Mul 1374 1005 1531; Sub 1459 1459 1374; Div 1083 1083 999; Mul 1374 1331 1020;
  Sub 1083 1083 1374; Mul 1083 779 1083; Mul 1374 1007 1344; Sub 1083 1083 1374; Add 1459 1459 1083;
  Div 1148 1148 999; Mul 1083 1080 1020; Sub 1148 1148 1083; Mul 1148 767 1148; Mul 1083 1008 1158;
  Add 1148 1148 1083; Add 1459 1459 1148; Div 1082 1082 999; Mul 1148 1056 1020; Sub 1082 1082 1148;
  Mul 1082 775 1082; Mul 1148 1009 1426; Sub 1082 1082 1148; Add 1459 1459 1082; Div 1612 1612 999;
  Mul 1082 1068 1020; Sub 1612 1612 1082; Mul 1612 815 1612; Mul 1082 1010 1439; Add 1612 1612 1082;
  Add 1459 1459 1612; Div 1689 1689 999; Mul 1612 1178 1020; Sub 1689 1689 1612; Mul 1689 833 1689;
  Mul 1612 1011 1226; Add 1689 1689 1612; Add 1459 1459 1689; Div 1459 1459 999; Mul 1020 1033 1020;
  Sub 1459 1459 1020; Mul 1020 756 1459; Add 1159 1159 1020; Sub 1077 1077 1159; Mul 1578 1012 1578;
  Mul 1451 211 1451; Mul 1159 986 1531; Sub 1451 1451 1159; Mul 1198 779 1198; Mul 1159 989 1344;
  Sub 1198 1198 1159; Add 1451 1451 1198; Mul 1240 767 1240; Mul 1198 991 1158; Add 1240 1240 1198;
  Add 1451 1451 1240; Mul 1145 775 1145; Mul 1240 993 1426; Sub 1145 1145 1240; Add 1451 1451 1145;
  Mul 1505 815 1505; Mul 1145 995 1439; Add 1505 1505 1145; Add 1451 1451 1505; Mul 1638 833 1638;
  Mul 1505 997 1226; Add 1638 1638 1505; Add 1451 1451 1638; Mul 1265 1006 1265; Mul 1638 987 1459;
  Add 1265 1265 1638; Sub 1451 1451 1265; Div 1451 1451 980; Mul 1385 1534 1385; Sub 1451 1451 1385;
  Mul 1385 957 1451; Add 1578 1578 1385; Sub 1077 1077 1578; Mul 1685 1013 1685; Mul 1167 211 1167;
  Mul 1578 944 1531; Sub 1167 1167 1578; Mul 1053 779 1053; Mul 1578 947 1344; Sub 1053 1053 1578;
  Add 1167 1167 1053; Mul 1211 767 1211; Mul 1053 949 1158; Add 1211 1211 1053].
Definition casadi_f0_244 : list instruction := [
  Add 1167 1167 1211; Mul 1683 775 1683; Mul 1211 951 1426; Sub 1683 1683 1211; Add 1167 1167 1683;
  Mul 1136 815 1136; Mul 1683 953 1439; Add 1136 1136 1683; Add 1167 1167 1136; Mul 1035 833 1035;
  Mul 1136 955 1226; Add 1035 1035 1136; Add 1167 1167 1035; Mul 1174 1006 1174; Mul 1035 945 1459;
  Add 1174 1174 1035; Sub 1167 1167 1174; Mul 1247 1012 1247; Mul 1174 973 1451; Add 1247 1247 1174;
  Sub 1167 1167 1247; Div 1167 1167 938; Mul 1028 1397 1028; Sub 1167 1167 1028; Mul 1028 922 1167;
  Add 1685 1685 1028; Sub 1077 1077 1685; Mul 1508 1014 1508; Mul 1567 779 1567; Mul 1685 910 1344;
  Sub 1567 1567 1685; Mul 1232 211 1232; Mul 1685 912 1531; Sub 1232 1232 1685; Sub 1567 1567 1232;
  Mul 1453 767 1453; Mul 1232 914 1158; Add 1453 1453 1232; Add 1567 1567 1453; Mul 1049 775 1049;
  Mul 1453 916 1426; Sub 1049 1049 1453; Sub 1567 1567 1049; Mul 1632 815 1632; Mul 1049 918 1439;
  Add 1632 1632 1049; Sub 1567 1567 1632; Mul 1521 833 1521; Mul 1632 920 1226; Add 1521 1521 1632;
  Sub 1567 1567 1521; Mul 1126 1006 1126; Mul 1521 911 1459; Add 1126 1126 1521; Sub 1567 1567 1126;
  Mul 1037 1012 1037; Mul 1126 967 1451; Add 1037 1037 1126; Sub 1567 1567 1037; Mul 1611 1013 1611;
  Mul 1037 932 1167; Add 1611 1611 1037; Sub 1567 1567 1611; Div 1567 1567 905; Mul 1217 1553 1217;
  Sub 1567 1567 1217; Mul 1217 895 1567; Add 1508 1508 1217; Sub 1077 1077 1508; Mul 1482 1015 1482;
  Mul 1157 211 1157; Mul 1531 881 1531; Sub 1157 1157 1531; Mul 1676 779 1676; Mul 1344 884 1344;
  Sub 1676 1676 1344; Add 1157 1157 1676; Mul 1048 767 1048; Mul 1158 886 1158; Add 1048 1048 1158;
  Add 1157 1157 1048; Mul 1290 775 1290; Mul 1426 888 1426; Sub 1290 1290 1426; Add 1157 1157 1290;
  Mul 1186 815 1186; Mul 1439 890 1439; Add 1186 1186 1439; Add 1157 1157 1186; Mul 1024 833 1024;
  Mul 1226 892 1226; Add 1024 1024 1226; Add 1157 1157 1024; Mul 1657 1006 1657; Mul 1024 882 1459;
  Add 1657 1657 1024; Sub 1157 1157 1657; Mul 1349 1012 1349; Mul 1657 959 1451; Add 1349 1349 1657;
  Sub 1157 1157 1349; Mul 1680 1013 1680; Mul 1349 924 1167; Add 1680 1680 1349; Sub 1157 1157 1680;
  Mul 1076 1014 1076; Mul 1680 897 1567; Add 1076 1076 1680; Sub 1157 1157 1076; Div 1157 1157 65;
  Mul 1560 1623 1560; Sub 1157 1157 1560; Mul 1560 875 1157; Add 1482 1482 1560; Sub 1077 1077 1482;
  Div 1077 1077 92; Mul 1639 759 1639; Sub 1077 1077 1639; Out 1 42 1077; Out 1 43 1157; Out 1 44 1567;
  Out 1 45 1167; Out 1 46 1451; Out 1 47 1459; Arg 1459 1 54; Out 1 48 1459; Arg 1451 1 55; Out 1 49 1451;
  Arg 1167 1 56; Out 1 50 1167; Arg 1567 1 57; Out 1 51 1567; Arg 1157 1 58; Out 1 52 1157; Arg 1077 1 59;
  Out 1 53 1077; Arg 1639 1 50; Mul 1482 8 1639; Mul 1560 10 1482; Arg 1076 1 53; Mul 1680 16 1076;
  Mul 1349 21 1680; Mul 1076 15 1076; Mul 1657 18 1076; Mul 1024 14 1680; Add 1657 1657 1024; Mul 1024 15 1657;
  Sub 1349 1349 1024; Mul 1024 18 1680].
Definition casadi_f0_245 : list instruction := [
  Mul 1226 14 1076; Sub 1024 1024 1226; Mul 1024 16 1024; Mul 1226 17 1076; Sub 1024 1024 1226;
  Sub 1226 1349 1024; Mul 1186 28 1076; Mul 1439 26 1680; Add 1186 1186 1439; Mul 1439 1031 1186;
  Mul 1290 28 1680; Mul 1426 26 1076; Sub 1290 1290 1426; Mul 1426 29 1290; Sub 1048 1439 1426;
  Mul 1048 20 1048; Add 1226 1226 1048; Mul 1426 20 1426; Add 1349 1349 1426; Add 1226 1226 1349;
  Mul 1439 20 1439; Add 1024 1024 1439; Add 1024 1024 1349; Add 1439 1226 1024; Mul 1024 19 1024; Arg 1426 1 52;
  Mul 1048 35 1426; Mul 1158 30 1048; Sub 1024 1024 1158; Mul 1426 19 1426; Mul 1158 41 1426; Mul 1676 42 1680;
  Mul 1344 40 1076; Sub 1676 1676 1344; Mul 1344 43 1680; Sub 1676 1676 1344; Mul 1344 44 1290;
  Add 1676 1676 1344; Mul 1344 35 1676; Add 1158 1158 1344; Sub 1024 1024 1158; Mul 1158 19 1024;
  Mul 1344 38 1048; Sub 1158 1158 1344; Mul 1676 19 1676; Mul 1344 41 1048; Sub 1676 1676 1344;
  Mul 1344 12 1426; Mul 1226 35 1226; Add 1344 1344 1226; Sub 1676 1676 1344; Mul 1344 35 1676;
  Mul 1226 46 1426; Add 1344 1344 1226; Sub 1158 1158 1344; Sub 1439 1439 1158; Sub 1439 1439 1349;
  Mul 1344 50 1186; Mul 1226 1039 1344; Mul 1531 50 1290; Mul 1508 19 1531; Mul 1217 49 1048;
  Sub 1508 1508 1217; Mul 1217 51 1426; Sub 1508 1508 1217; Mul 1217 1041 1508; Sub 1611 1226 1217;
  Mul 1611 37 1611; Add 1439 1439 1611; Mul 1611 49 1426; Mul 1037 35 1531; Add 1611 1611 1037;
  Mul 1037 51 1048; Sub 1611 1611 1037; Mul 1037 64 1611; Add 1217 1037 1217; Mul 1217 37 1217;
  Add 1217 1349 1217; Add 1439 1439 1217; Mul 1126 43 1076; Mul 1521 42 1076; Mul 1632 40 1680;
  Add 1521 1521 1632; Sub 1126 1126 1521; Mul 1521 44 1186; Sub 1126 1126 1521; Mul 1521 67 1126;
  Mul 1632 19 1521; Mul 1049 71 1048; Sub 1632 1632 1049; Mul 1049 75 1426; Mul 1657 16 1657; Mul 1453 21 1076;
  Add 1657 1657 1453; Mul 1186 74 1186; Mul 1290 20 1290; Mul 1290 34 1290; Sub 1186 1186 1290;
  Add 1657 1657 1186; Add 1186 1657 1657; Mul 1290 35 1186; Sub 1049 1049 1290; Add 1632 1632 1049;
  Mul 1049 73 1426; Mul 1290 35 1657; Sub 1049 1049 1290; Mul 1290 19 1126; Mul 1453 70 1048;
  Sub 1290 1290 1453; Add 1049 1049 1290; Sub 1632 1632 1049; Mul 1049 76 1344; Mul 1290 37 1611;
  Mul 1453 57 1290; Sub 1049 1049 1453; Sub 1632 1632 1049; Mul 1049 67 1632; Mul 1049 66 1049; Arg 1453 1 51;
  Mul 1232 53 1453; Mul 1685 77 1232; Sub 1049 1049 1685; Mul 1453 66 1453; Mul 1685 11 1453; Mul 1028 53 1439;
  Add 1685 1685 1028; Sub 1049 1049 1685; Mul 1685 53 1049; Mul 1028 78 1453; Add 1685 1685 1028;
  Add 1439 1439 1685; Sub 1439 1439 1217; Mul 1028 87 1232; Mul 1247 83 1344; Mul 1174 66 1247;
  Add 1028 1028 1174; Mul 1174 88 1453; Mul 1611 83 1611; Mul 1035 53 1611; Add 1174 1174 1035;
  Add 1028 1028 1174; Mul 1174 1054 1028; Mul 1035 83 1508; Mul 1136 1058 1035; Sub 1683 1174 1136;
  Mul 1683 80 1683; Add 1439 1439 1683; Add 1217 1217 1685; Mul 1685 66 1611].
Definition casadi_f0_246 : list instruction := [
  Mul 1683 88 1232; Sub 1685 1685 1683; Mul 1683 87 1453; Mul 1211 53 1247; Sub 1683 1683 1211;
  Add 1685 1685 1683; Mul 1683 93 1685; Add 1136 1683 1136; Mul 1136 80 1136; Add 1217 1217 1136;
  Add 1439 1439 1217; Mul 1136 9 1439; Add 1560 1560 1136; Mul 1049 66 1049; Mul 1136 78 1232;
  Sub 1049 1049 1136; Sub 1049 1049 1632; Mul 1632 72 1028; Mul 1136 80 1685; Mul 1211 63 1136;
  Sub 1632 1632 1211; Sub 1049 1049 1632; Mul 1632 67 1049; Mul 1632 8 1632; Mul 1639 9 1639; Mul 1211 97 1639;
  Sub 1632 1632 1211; Add 1560 1560 1632; Mul 1632 9 1560; Mul 1211 84 1482; Add 1632 1632 1211;
  Sub 1211 1632 1217; Mul 1685 104 1685; Mul 1053 8 1685; Mul 1578 103 1639; Sub 1053 1053 1578;
  Mul 1578 105 1482; Mul 1385 104 1028; Mul 1265 9 1385; Sub 1578 1578 1265; Sub 1053 1053 1578;
  Mul 1578 33 1053; Mul 1265 104 1035; Mul 1638 1066 1265; Add 1505 1578 1638; Mul 1505 100 1505;
  Sub 1211 1211 1505; Mul 1560 8 1560; Mul 1505 84 1639; Sub 1560 1560 1505; Sub 1560 1560 1049;
  Mul 1049 103 1482; Mul 1505 9 1685; Add 1049 1049 1505; Mul 1505 105 1639; Mul 1145 8 1385;
  Add 1505 1505 1145; Sub 1049 1049 1505; Mul 1505 96 1049; Mul 1145 100 1053; Mul 1240 117 1145;
  Sub 1505 1505 1240; Add 1560 1560 1505; Mul 1560 67 1560; Mul 1560 114 1560; Arg 1505 1 49; Mul 1240 113 1505;
  Mul 1198 116 1240; Sub 1560 1560 1198; Mul 1505 114 1505; Mul 1198 119 1505; Sub 1439 1439 1632;
  Sub 1439 1439 1217; Mul 1217 1044 1049; Sub 1638 1217 1638; Mul 1638 100 1638; Add 1439 1439 1638;
  Sub 1439 1439 1211; Mul 1439 113 1439; Add 1198 1198 1439; Sub 1560 1560 1198; Mul 1560 113 1560;
  Mul 1198 118 1505; Add 1560 1560 1198; Sub 1211 1211 1560; Mul 1053 120 1053; Mul 1560 114 1053;
  Mul 1198 60 1240; Sub 1560 1560 1198; Mul 1198 121 1505; Mul 1439 120 1049; Mul 1638 113 1439;
  Add 1198 1198 1638; Add 1560 1560 1198; Mul 1198 112 1560; Mul 1638 120 1265; Mul 1632 123 1638;
  Add 1198 1198 1632; Mul 1198 99 1198; Sub 1211 1211 1198; Mul 1560 125 1560; Mul 1560 110 1560;
  Mul 1198 125 1638; Mul 1198 126 1198; Add 1560 1560 1198; Mul 1560 122 1560; Add 1211 1211 1560;
  Div 1560 1211 92; Mul 1211 6 1211; Mul 1198 130 1482; Mul 1676 19 1676; Mul 1632 46 1048; Sub 1676 1676 1632;
  Mul 1024 35 1024; Mul 1632 38 1426; Add 1024 1024 1632; Add 1676 1676 1024; Mul 1290 52 1290;
  Mul 1024 76 1508; Add 1290 1290 1024; Add 1676 1676 1290; Mul 1290 66 1676; Mul 1024 129 1232;
  Sub 1290 1290 1024; Mul 1024 132 1453; Mul 1632 70 1426; Mul 1159 35 1126; Add 1632 1632 1159;
  Mul 1159 73 1048; Mul 1020 19 1657; Add 1159 1159 1020; Add 1632 1632 1159; Mul 1186 19 1186;
  Mul 1159 75 1048; Add 1186 1186 1159; Mul 1521 35 1521; Mul 1159 71 1426; Add 1521 1521 1159;
  Add 1186 1186 1521; Sub 1632 1632 1186; Mul 1186 133 1344; Mul 1508 37 1508; Mul 1508 57 1508;
  Sub 1186 1186 1508; Sub 1632 1632 1186; Mul 1186 53 1632; Add 1024 1024 1186; Add 1290 1290 1024;
  Mul 1136 27 1136].
Definition casadi_f0_247 : list instruction := [
  Mul 1024 72 1035; Add 1136 1136 1024; Add 1290 1290 1136; Mul 1136 9 1290; Add 1198 1198 1136;
  Add 1136 1632 1632; Mul 1136 66 1136; Mul 1024 136 1232; Sub 1136 1136 1024; Mul 1024 129 1453;
  Mul 1186 53 1676; Add 1024 1024 1186; Sub 1136 1136 1024; Mul 1024 66 1632; Mul 1186 132 1232;
  Sub 1024 1024 1186; Sub 1136 1136 1024; Mul 1028 138 1028; Mul 1024 80 1035; Mul 1024 63 1024;
  Sub 1028 1028 1024; Sub 1136 1136 1028; Add 1028 1136 1136; Mul 1028 8 1028; Mul 1024 139 1639;
  Sub 1028 1028 1024; Add 1198 1198 1028; Mul 1028 8 1136; Mul 1024 137 1639; Sub 1028 1028 1024;
  Sub 1198 1198 1028; Mul 1049 140 1049; Mul 1028 100 1265; Mul 1028 117 1028; Sub 1049 1049 1028;
  Add 1198 1198 1049; Mul 1049 141 1638; Mul 1049 121 1049; Mul 1028 142 1439; Add 1049 1049 1028;
  Sub 1198 1198 1049; Mul 1198 114 1198; Mul 1049 134 1240; Sub 1198 1198 1049; Mul 1049 145 1505;
  Mul 1028 8 1290; Mul 1024 130 1639; Sub 1028 1028 1024; Mul 1024 137 1482; Mul 1186 9 1136;
  Add 1024 1024 1186; Sub 1028 1028 1024; Mul 1145 111 1145; Mul 1024 96 1265; Add 1145 1145 1024;
  Add 1028 1028 1145; Mul 1145 141 1053; Mul 1145 124 1145; Mul 1638 146 1638; Add 1145 1145 1638;
  Sub 1028 1028 1145; Mul 1028 113 1028; Add 1049 1049 1028; Sub 1198 1198 1049; Mul 1049 1073 1198;
  Add 1211 1211 1049; Mul 1049 150 1505; Mul 1028 149 1482; Mul 1145 148 1265; Mul 1638 147 1385;
  Mul 1024 109 1638; Sub 1145 1145 1024; Add 1136 1136 1145; Mul 1145 9 1136; Add 1028 1028 1145;
  Mul 1265 151 1265; Mul 1145 147 1685; Mul 1024 109 1145; Add 1265 1265 1024; Add 1290 1290 1265;
  Mul 1265 8 1290; Mul 1024 152 1639; Sub 1265 1265 1024; Sub 1028 1028 1265; Mul 1265 148 1482;
  Mul 1024 9 1638; Sub 1265 1265 1024; Mul 1024 8 1145; Mul 1186 151 1639; Sub 1024 1024 1186;
  Sub 1265 1265 1024; Mul 1024 108 1265; Add 1028 1028 1024; Mul 1028 113 1028; Add 1049 1049 1028;
  Mul 1028 152 1482; Mul 1290 9 1290; Add 1028 1028 1290; Mul 1136 8 1136; Mul 1290 149 1639;
  Sub 1136 1136 1290; Add 1028 1028 1136; Mul 1136 151 1482; Mul 1290 9 1145; Add 1136 1136 1290;
  Mul 1290 148 1639; Mul 1024 8 1638; Add 1290 1290 1024; Sub 1136 1136 1290; Mul 1136 108 1136;
  Add 1028 1028 1136; Mul 1028 114 1028; Mul 1136 155 1240; Sub 1028 1028 1136; Add 1049 1049 1028;
  Mul 1028 1050 1049; Add 1211 1211 1028; Mul 1028 159 1482; Mul 1136 156 1611; Mul 1136 82 1136;
  Mul 1290 157 1035; Add 1136 1136 1290; Sub 1676 1676 1136; Mul 1136 66 1676; Mul 1290 158 1232;
  Sub 1136 1136 1290; Mul 1290 161 1453; Mul 1035 156 1035; Mul 1035 87 1035; Mul 1024 160 1247;
  Sub 1035 1035 1024; Sub 1632 1632 1035; Mul 1035 53 1632; Add 1290 1290 1035; Add 1136 1136 1290;
  Mul 1290 9 1136; Add 1028 1028 1290; Mul 1632 66 1632; Mul 1290 161 1232; Sub 1632 1632 1290;
  Mul 1290 158 1453; Mul 1676 53 1676; Add 1290 1290 1676; Sub 1632 1632 1290; Mul 1290 8 1632;
  Mul 1676 163 1639; Sub 1290 1290 1676; Add 1028 1028 1290; Mul 1290 167 1453].
Definition casadi_f0_248 : list instruction := [
  Mul 1676 166 1611; Mul 1035 53 1676; Add 1290 1290 1035; Mul 1035 164 1232; Mul 1024 156 1247;
  Mul 1186 66 1024; Add 1035 1035 1186; Sub 1290 1290 1035; Mul 1035 8 1290; Mul 1186 165 1639;
  Sub 1035 1035 1186; Mul 1186 169 1482; Mul 1676 66 1676; Mul 1508 167 1232; Sub 1676 1676 1508;
  Mul 1508 164 1453; Mul 1024 53 1024; Sub 1508 1508 1024; Sub 1676 1676 1508; Mul 1508 9 1676;
  Add 1186 1186 1508; Sub 1035 1035 1186; Mul 1035 108 1035; Sub 1028 1028 1035; Mul 1028 114 1028;
  Mul 1035 162 1240; Sub 1028 1028 1035; Mul 1035 170 1505; Mul 1136 8 1136; Mul 1186 159 1639;
  Sub 1136 1136 1186; Mul 1186 163 1482; Mul 1632 9 1632; Add 1186 1186 1632; Sub 1136 1136 1186;
  Mul 1186 165 1482; Mul 1632 9 1290; Add 1186 1186 1632; Mul 1632 8 1676; Mul 1508 169 1639;
  Sub 1632 1632 1508; Add 1186 1186 1632; Mul 1632 108 1186; Add 1136 1136 1632; Mul 1136 113 1136;
  Add 1035 1035 1136; Sub 1028 1028 1035; Mul 1035 1070 1028; Add 1211 1211 1035; Mul 1035 179 1482;
  Mul 1136 177 1453; Mul 1632 174 1531; Mul 1531 173 1531; Mul 1508 49 1531; Add 1632 1632 1508;
  Add 1632 1632 1349; Mul 1508 174 1426; Mul 1024 35 1531; Add 1508 1508 1024; Mul 1024 176 1048;
  Sub 1508 1508 1024; Mul 1024 62 1508; Mul 1521 176 1426; Mul 1159 19 1531; Mul 1020 174 1048;
  Sub 1159 1159 1020; Sub 1521 1521 1159; Mul 1159 48 1521; Sub 1024 1024 1159; Add 1024 1632 1024;
  Mul 1159 53 1024; Add 1136 1136 1159; Mul 1159 176 1344; Sub 1126 1126 1159; Mul 1159 19 1126;
  Mul 1020 180 1048; Sub 1159 1159 1020; Mul 1020 182 1426; Mul 1531 56 1531; Mul 1344 174 1344;
  Sub 1531 1531 1344; Sub 1531 1531 1657; Mul 1657 35 1531; Add 1020 1020 1657; Add 1159 1159 1020;
  Mul 1020 55 1508; Add 1159 1159 1020; Mul 1020 66 1159; Mul 1657 181 1232; Sub 1020 1020 1657;
  Sub 1136 1136 1020; Mul 1020 86 1508; Sub 1136 1136 1020; Mul 1020 9 1136; Add 1035 1035 1020;
  Mul 1020 181 1453; Mul 1159 53 1159; Add 1020 1020 1159; Mul 1024 66 1024; Mul 1159 177 1232;
  Sub 1024 1024 1159; Add 1020 1020 1024; Mul 1024 91 1508; Add 1020 1020 1024; Mul 1024 8 1020;
  Mul 1159 184 1639; Sub 1024 1024 1159; Add 1035 1035 1024; Mul 1508 102 1508; Mul 1024 66 1521;
  Mul 1159 178 1232; Sub 1024 1024 1159; Mul 1159 8 1024; Mul 1657 185 1639; Sub 1159 1159 1657;
  Mul 1657 187 1482; Mul 1344 178 1453; Mul 1689 53 1521; Add 1344 1344 1689; Mul 1689 9 1344;
  Add 1657 1657 1689; Add 1159 1159 1657; Mul 1159 108 1159; Sub 1508 1508 1159; Add 1035 1035 1508;
  Mul 1035 114 1035; Mul 1508 183 1240; Sub 1035 1035 1508; Mul 1508 186 1505; Mul 1136 8 1136;
  Mul 1159 179 1639; Sub 1136 1136 1159; Mul 1159 184 1482; Mul 1020 9 1020; Add 1159 1159 1020;
  Sub 1136 1136 1159; Mul 1159 185 1482; Mul 1020 9 1024; Add 1159 1159 1020; Mul 1020 8 1344;
  Mul 1657 187 1639; Sub 1020 1020 1657; Sub 1159 1159 1020; Mul 1020 108 1159; Add 1136 1136 1020;
  Mul 1136 113 1136; Add 1508 1508 1136; Sub 1035 1035 1508; Mul 1508 1059 1035].
Definition casadi_f0_249 : list instruction := [
  Add 1211 1211 1508; Mul 1508 199 1482; Mul 1136 196 1426; Mul 1020 197 1680; Mul 1657 195 1076;
  Sub 1020 1020 1657; Mul 1657 190 1076; Mul 1689 192 1680; Add 1657 1657 1689; Mul 1689 198 1657;
  Add 1020 1020 1689; Mul 1689 35 1020; Add 1136 1136 1689; Mul 1689 189 1048; Mul 1612 25 1657;
  Mul 1082 190 1680; Mul 1148 192 1076; Sub 1082 1082 1148; Mul 1148 32 1082; Add 1612 1612 1148;
  Mul 1148 19 1612; Add 1689 1689 1148; Sub 1136 1136 1689; Mul 1689 48 1657; Mul 1148 19 1082;
  Mul 1083 194 1048; Sub 1148 1148 1083; Mul 1083 55 1148; Add 1689 1689 1083; Sub 1136 1136 1689;
  Mul 1689 66 1136; Mul 1083 193 1232; Sub 1689 1689 1083; Mul 1083 202 1453; Mul 1374 198 1082;
  Mul 1413 197 1076; Mul 1470 195 1680; Add 1413 1413 1470; Sub 1374 1374 1413; Mul 1413 62 1148;
  Mul 1470 194 1426; Mul 1082 35 1082; Add 1470 1470 1082; Mul 1082 48 1470; Sub 1413 1413 1082;
  Add 1413 1374 1413; Mul 1082 53 1413; Add 1083 1083 1082; Add 1689 1689 1083; Mul 1083 86 1148;
  Sub 1689 1689 1083; Mul 1083 9 1689; Add 1508 1508 1083; Mul 1413 66 1413; Mul 1083 202 1232;
  Sub 1413 1413 1083; Mul 1083 193 1453; Mul 1136 53 1136; Add 1083 1083 1136; Sub 1413 1413 1083;
  Mul 1083 91 1148; Add 1413 1413 1083; Mul 1083 8 1413; Mul 1136 205 1639; Sub 1083 1083 1136;
  Add 1508 1508 1083; Mul 1148 102 1148; Mul 1083 66 1470; Mul 1136 203 1232; Sub 1083 1083 1136;
  Mul 1136 191 1453; Mul 1082 53 1657; Sub 1136 1136 1082; Add 1083 1083 1136; Mul 1136 8 1083;
  Mul 1082 206 1639; Sub 1136 1136 1082; Mul 1082 208 1482; Mul 1307 191 1232; Mul 1587 66 1657;
  Add 1307 1307 1587; Mul 1587 203 1453; Mul 1103 53 1470; Add 1587 1587 1103; Add 1307 1307 1587;
  Mul 1587 9 1307; Sub 1082 1082 1587; Sub 1136 1136 1082; Mul 1136 108 1136; Sub 1148 1148 1136;
  Add 1508 1508 1148; Mul 1508 114 1508; Mul 1148 204 1240; Sub 1508 1508 1148; Mul 1148 207 1505;
  Mul 1689 8 1689; Mul 1136 199 1639; Sub 1689 1689 1136; Mul 1136 205 1482; Mul 1413 9 1413;
  Add 1136 1136 1413; Sub 1689 1689 1136; Mul 1136 206 1482; Mul 1413 9 1083; Add 1136 1136 1413;
  Mul 1413 208 1639; Mul 1082 8 1307; Add 1413 1413 1082; Sub 1136 1136 1413; Mul 1413 108 1136;
  Add 1689 1689 1413; Mul 1689 113 1689; Add 1148 1148 1689; Sub 1508 1508 1148; Mul 1148 1043 1508;
  Add 1211 1211 1148; Div 1211 1211 1085; Mul 1148 1072 1211; Sub 1560 1560 1148; Mul 1148 211 1560;
  Mul 1689 216 1505; Arg 1413 1 48; Mul 1082 215 1413; Mul 1587 113 1082; Sub 1689 1689 1587; Mul 1587 218 1689;
  Mul 1103 114 1459; Mul 1235 0 1240; Sub 1103 1103 1235; Mul 1235 217 1103; Add 1587 1587 1235;
  Mul 1413 216 1413; Mul 1235 1 1413; Mul 1564 215 1451; Add 1235 1235 1564; Sub 1587 1587 1235;
  Mul 1235 0 1505; Mul 1564 113 1459; Add 1235 1235 1564; Mul 1564 220 1235; Mul 1507 114 1082;
  Mul 1476 216 1240; Add 1507 1507 1476; Mul 1476 221 1507; Sub 1564 1564 1476; Sub 1587 1587 1564;
  Mul 1564 214 1587; Mul 1476 213 1564; Mul 1476 212 1476].
Definition casadi_f0_250 : list instruction := [
  Mul 1408 225 1476; Mul 1466 114 1413; Mul 1324 215 1240; Sub 1466 1466 1324; Mul 1324 101 1466;
  Mul 1038 107 1082; Sub 1324 1324 1038; Mul 1038 223 1324; Add 1101 1408 1038; Mul 1088 216 1451;
  Mul 1424 1 1082; Sub 1088 1088 1424; Mul 1424 113 1413; Mul 1213 215 1505; Add 1424 1424 1213;
  Mul 1213 218 1424; Mul 1658 228 1103; Add 1213 1213 1658; Add 1088 1088 1213; Mul 1213 221 1466;
  Mul 1658 224 1235; Add 1213 1213 1658; Sub 1088 1088 1213; Mul 1213 214 1088; Mul 1658 213 1213;
  Mul 1658 212 1658; Mul 1403 231 1658; Mul 1481 101 1507; Mul 1672 107 1413; Add 1481 1481 1672;
  Mul 1672 230 1481; Sub 1403 1403 1672; Sub 1672 1101 1403; Add 1038 1038 1408; Sub 1403 1038 1403;
  Add 1408 1672 1403; Mul 1447 144 1505; Mul 1300 215 1447; Mul 1609 240 1413; Add 1300 1300 1609;
  Mul 1609 236 1240; Mul 1625 238 1505; Add 1609 1609 1625; Mul 1625 220 1609; Mul 1664 237 1507;
  Add 1625 1625 1664; Sub 1300 1300 1625; Mul 1625 115 1082; Add 1300 1300 1625; Mul 1625 212 1481;
  Mul 1664 242 1625; Mul 1144 101 1505; Mul 1434 241 1144; Add 1664 1664 1434; Add 1664 1300 1664;
  Mul 1434 244 1664; Mul 1688 213 1088; Mul 1105 243 1688; Add 1457 1434 1105; Mul 1575 237 1466;
  Mul 1179 224 1609; Sub 1575 1575 1179; Mul 1447 216 1447; Mul 1179 240 1082; Sub 1447 1447 1179;
  Sub 1575 1575 1447; Mul 1447 115 1413; Sub 1575 1575 1447; Mul 1447 212 1324; Mul 1447 242 1447;
  Mul 1179 247 1144; Sub 1447 1447 1179; Sub 1447 1575 1447; Mul 1179 249 1447; Mul 1281 213 1587;
  Mul 1636 248 1281; Add 1608 1179 1636; Sub 1193 1457 1608; Sub 1408 1408 1193; Add 1636 1636 1179;
  Add 1105 1105 1434; Sub 1434 1636 1105; Add 1408 1408 1434; Mul 1434 9 1689; Mul 1179 217 1482;
  Add 1434 1434 1179; Mul 1179 8 1507; Mul 1193 220 1639; Add 1179 1179 1193; Sub 1434 1434 1179;
  Mul 1179 254 1434; Mul 1193 218 1482; Mul 1582 9 1103; Add 1193 1193 1582; Mul 1582 8 1235; Mul 1691 221 1639;
  Sub 1582 1582 1691; Sub 1193 1193 1582; Mul 1582 253 1193; Add 1179 1179 1582; Mul 1689 8 1689;
  Mul 1582 217 1639; Sub 1689 1689 1582; Mul 1582 220 1482; Mul 1691 9 1507; Sub 1582 1582 1691;
  Sub 1689 1689 1582; Mul 1582 257 1689; Mul 1691 221 1482; Mul 1019 9 1235; Add 1691 1691 1019;
  Mul 1019 8 1103; Mul 1204 218 1639; Sub 1019 1019 1204; Add 1691 1691 1019; Mul 1019 256 1691;
  Add 1582 1582 1019; Mul 1019 259 1413; Sub 1204 1451 1167; Mul 1576 215 1204; Add 1019 1019 1576;
  Sub 1582 1582 1019; Add 1179 1179 1582; Mul 1582 213 1179; Mul 1019 276 1582; Mul 1576 114 1482;
  Mul 1209 9 1240; Sub 1576 1576 1209; Mul 1209 8 1505; Mul 1375 113 1639; Sub 1209 1209 1375;
  Sub 1576 1576 1209; Mul 1209 260 1576; Mul 1375 9 1505; Mul 1449 113 1482; Add 1375 1375 1449;
  Mul 1449 8 1240; Mul 1679 114 1639; Add 1449 1449 1679; Sub 1375 1375 1449; Mul 1449 263 1375;
  Add 1209 1209 1449; Mul 1449 265 1209; Mul 1679 8 1466; Mul 1162 224 1639; Sub 1679 1679 1162;
  Mul 1162 9 1424; Mul 1287 228 1482; Add 1162 1162 1287].
Definition casadi_f0_251 : list instruction := [
  Add 1679 1679 1162; Mul 1162 262 1679; Add 1449 1449 1162; Mul 1162 127 1576; Mul 1287 268 1375;
  Add 1162 1162 1287; Mul 1287 216 1162; Mul 1577 267 1082; Sub 1287 1287 1577; Add 1449 1449 1287;
  Mul 1287 135 1434; Mul 1577 95 1413; Add 1287 1287 1577; Sub 1449 1449 1287; Mul 1287 102 1466;
  Mul 1577 108 1082; Sub 1287 1287 1577; Mul 1577 79 1679; Mul 1506 8 1424; Mul 1552 228 1639;
  Sub 1506 1506 1552; Mul 1552 9 1466; Mul 1410 224 1482; Add 1552 1552 1410; Sub 1506 1506 1552;
  Mul 1552 85 1506; Mul 1410 81 1082; Sub 1552 1552 1410; Add 1577 1577 1552; Add 1577 1287 1577;
  Mul 1552 269 1577; Mul 1552 275 1552; Mul 1410 79 1576; Mul 1225 85 1375; Add 1410 1410 1225;
  Mul 1225 102 1505; Sub 1410 1410 1225; Mul 1599 272 1410; Add 1552 1552 1599; Sub 1552 1449 1552;
  Mul 1599 258 1552; Add 1581 1019 1599; Mul 1303 254 1679; Mul 1699 265 1193; Add 1303 1303 1699;
  Mul 1699 216 1204; Mul 1109 259 1082; Sub 1699 1699 1109; Mul 1109 257 1506; Mul 1254 273 1691;
  Add 1109 1109 1254; Add 1699 1699 1109; Add 1303 1303 1699; Mul 1699 213 1303; Mul 1109 284 1699;
  Mul 1254 253 1209; Mul 1149 262 1434; Add 1254 1254 1149; Mul 1162 215 1162; Mul 1149 267 1413;
  Add 1162 1162 1149; Sub 1254 1254 1162; Mul 1162 95 1082; Mul 1149 135 1679; Add 1162 1162 1149;
  Add 1254 1254 1162; Mul 1162 79 1434; Mul 1149 85 1689; Mul 1329 81 1413; Sub 1149 1149 1329;
  Add 1162 1162 1149; Mul 1149 102 1507; Mul 1329 108 1413; Add 1149 1149 1329; Sub 1162 1162 1149;
  Mul 1329 269 1162; Mul 1113 275 1329; Mul 1485 283 1410; Add 1113 1113 1485; Sub 1113 1254 1113;
  Mul 1485 279 1113; Add 1667 1109 1485; Sub 1090 1581 1667; Mul 1559 292 1410; Mul 1282 288 1375;
  Mul 1671 287 1482; Mul 1242 108 1103; Mul 1280 9 1242; Add 1671 1671 1280; Mul 1280 102 1451;
  Mul 1094 108 1235; Add 1280 1280 1094; Mul 1094 8 1280; Mul 1231 289 1639; Sub 1094 1094 1231;
  Sub 1671 1671 1094; Mul 1094 264 1671; Add 1282 1282 1094; Mul 1094 291 1576; Mul 1242 8 1242;
  Mul 1231 287 1639; Sub 1242 1242 1231; Mul 1231 289 1482; Mul 1280 9 1280; Add 1231 1231 1280;
  Add 1242 1242 1231; Mul 1231 261 1242; Add 1094 1094 1231; Sub 1282 1282 1094; Mul 1094 281 1303;
  Mul 1231 278 1149; Sub 1094 1094 1231; Mul 1231 255 1287; Mul 1280 270 1179; Add 1231 1231 1280;
  Sub 1094 1094 1231; Add 1282 1282 1094; Mul 1094 213 1282; Mul 1094 269 1094; Mul 1231 275 1094;
  Add 1280 1559 1231; Mul 1089 288 1689; Mul 1468 256 1671; Add 1089 1089 1468; Mul 1468 295 1413;
  Mul 1502 102 1103; Mul 1314 215 1502; Add 1468 1468 1314; Sub 1089 1089 1468; Mul 1468 291 1434;
  Mul 1314 253 1242; Add 1468 1468 1314; Sub 1089 1089 1468; Mul 1468 296 1287; Mul 1314 254 1576;
  Mul 1347 261 1193; Add 1314 1314 1347; Mul 1347 257 1375; Mul 1565 264 1691; Add 1347 1347 1565;
  Add 1314 1314 1347; Mul 1347 270 1314; Add 1468 1468 1347; Mul 1347 274 1303; Mul 1565 278 1225;
  Sub 1347 1347 1565; Sub 1468 1468 1347; Add 1089 1089 1468; Mul 1468 213 1089].
Definition casadi_f0_252 : list instruction := [
  Mul 1468 269 1468; Mul 1347 282 1468; Mul 1565 297 1162; Add 1117 1347 1565; Mul 1161 216 1502;
  Mul 1696 295 1082; Sub 1161 1161 1696; Mul 1696 288 1506; Mul 1361 273 1671; Add 1696 1696 1361;
  Add 1161 1161 1696; Mul 1696 291 1679; Mul 1361 265 1242; Add 1696 1696 1361; Sub 1161 1161 1696;
  Mul 1696 274 1179; Mul 1361 255 1225; Sub 1696 1696 1361; Mul 1361 281 1314; Mul 1561 296 1149;
  Sub 1361 1361 1561; Sub 1696 1696 1361; Add 1161 1161 1696; Mul 1696 213 1161; Mul 1696 269 1696;
  Mul 1361 271 1696; Mul 1561 300 1577; Add 1663 1361 1561; Add 1231 1231 1559; Add 1559 1663 1231;
  Add 1117 1117 1559; Sub 1445 1280 1117; Add 1565 1565 1347; Add 1561 1561 1361; Add 1280 1561 1280;
  Add 1565 1565 1280; Sub 1231 1231 1565; Add 1445 1445 1231; Add 1485 1485 1109; Add 1599 1599 1019;
  Sub 1019 1485 1599; Add 1445 1445 1019; Sub 1090 1090 1445; Mul 1445 66 1434; Mul 1019 253 1232;
  Sub 1445 1445 1019; Mul 1019 53 1689; Mul 1109 256 1453; Add 1019 1019 1109; Sub 1445 1445 1019;
  Mul 1019 308 1445; Mul 1109 66 1193; Mul 1231 254 1232; Sub 1109 1109 1231; Mul 1231 257 1453;
  Mul 1361 53 1691; Add 1231 1231 1361; Sub 1109 1109 1231; Mul 1231 304 1109; Add 1019 1019 1231;
  Mul 1231 53 1434; Mul 1361 253 1453; Add 1231 1231 1361; Mul 1361 66 1689; Mul 1347 256 1232;
  Sub 1361 1361 1347; Add 1231 1231 1361; Mul 1361 311 1231; Mul 1347 254 1453; Mul 1236 53 1193;
  Add 1347 1347 1236; Mul 1236 66 1691; Mul 1124 257 1232; Sub 1236 1236 1124; Add 1347 1347 1236;
  Mul 1236 310 1347; Add 1361 1361 1236; Mul 1236 313 1413; Add 1124 1567 1204; Mul 1406 215 1124;
  Add 1236 1236 1406; Sub 1361 1361 1236; Add 1019 1019 1361; Mul 1361 213 1019; Mul 1236 330 1361;
  Mul 1406 66 1576; Mul 1566 261 1232; Sub 1406 1406 1566; Mul 1566 53 1375; Mul 1111 264 1453;
  Add 1566 1566 1111; Sub 1406 1406 1566; Mul 1566 314 1406; Mul 1111 53 1576; Mul 1022 261 1453;
  Add 1111 1111 1022; Mul 1022 66 1375; Mul 1277 264 1232; Sub 1022 1022 1277; Add 1111 1111 1022;
  Mul 1022 317 1111; Add 1566 1566 1022; Mul 1022 319 1566; Mul 1277 66 1679; Mul 1640 265 1232;
  Sub 1277 1277 1640; Mul 1640 53 1506; Mul 1320 273 1453; Add 1640 1640 1320; Sub 1277 1277 1640;
  Mul 1640 316 1277; Add 1022 1022 1640; Mul 1640 128 1406; Mul 1320 322 1111; Add 1640 1640 1320;
  Mul 1320 216 1640; Mul 1251 321 1082; Sub 1320 1320 1251; Add 1022 1022 1320; Mul 1320 131 1445;
  Mul 1251 68 1413; Add 1320 1320 1251; Sub 1022 1022 1320; Mul 1320 91 1679; Mul 1251 86 1506;
  Add 1320 1320 1251; Add 1320 1287 1320; Mul 1251 61 1277; Mul 1662 53 1679; Mul 1313 265 1453;
  Add 1662 1662 1313; Mul 1313 66 1506; Mul 1518 273 1232; Sub 1313 1313 1518; Add 1662 1662 1313;
  Mul 1313 54 1662; Mul 1518 47 1082; Sub 1313 1313 1518; Add 1251 1251 1313; Add 1251 1320 1251;
  Mul 1313 323 1251; Mul 1313 329 1313; Mul 1518 91 1576; Mul 1375 86 1375; Add 1518 1518 1375;
  Sub 1518 1518 1225; Mul 1375 61 1406; Mul 1544 54 1111; Add 1375 1375 1544].
Definition casadi_f0_253 : list instruction := [
  Add 1375 1518 1375; Mul 1544 326 1375; Add 1313 1313 1544; Sub 1313 1022 1313; Mul 1544 312 1313;
  Add 1291 1236 1544; Mul 1354 308 1277; Mul 1122 319 1109; Add 1354 1354 1122; Mul 1122 216 1124;
  Mul 1137 313 1082; Sub 1122 1122 1137; Mul 1137 311 1662; Mul 1500 327 1347; Add 1137 1137 1500;
  Add 1122 1122 1137; Add 1354 1354 1122; Mul 1122 213 1354; Mul 1137 338 1122; Mul 1500 304 1566;
  Mul 1025 316 1445; Add 1500 1500 1025; Mul 1640 215 1640; Mul 1025 321 1413; Add 1640 1640 1025;
  Sub 1500 1500 1640; Mul 1640 68 1082; Mul 1025 131 1277; Add 1640 1640 1025; Add 1500 1500 1640;
  Mul 1640 91 1434; Mul 1689 86 1689; Add 1640 1640 1689; Sub 1640 1640 1149; Mul 1689 61 1445;
  Mul 1025 54 1231; Mul 1458 47 1413; Sub 1025 1025 1458; Add 1689 1689 1025; Add 1689 1640 1689;
  Mul 1025 323 1689; Mul 1458 329 1025; Mul 1215 337 1375; Add 1458 1458 1215; Sub 1458 1500 1458;
  Mul 1215 333 1458; Add 1501 1137 1215; Sub 1283 1291 1501; Mul 1123 346 1375; Mul 1036 342 1406;
  Mul 1321 86 1204; Sub 1321 1321 1242; Mul 1242 66 1321; Mul 1268 341 1232; Sub 1242 1242 1268;
  Mul 1268 343 1453; Mul 1204 91 1204; Sub 1671 1671 1204; Mul 1204 53 1671; Add 1268 1268 1204;
  Sub 1242 1242 1268; Mul 1268 315 1242; Add 1036 1036 1268; Mul 1268 345 1111; Mul 1204 341 1453;
  Mul 1321 53 1321; Add 1204 1204 1321; Mul 1671 66 1671; Mul 1321 343 1232; Sub 1671 1671 1321;
  Add 1204 1204 1671; Mul 1671 318 1204; Add 1268 1268 1671; Add 1036 1036 1268; Mul 1268 332 1640;
  Mul 1671 335 1354; Add 1268 1268 1671; Mul 1671 309 1320; Mul 1321 324 1019; Add 1671 1671 1321;
  Sub 1268 1268 1671; Add 1036 1036 1268; Mul 1268 213 1036; Mul 1268 323 1268; Mul 1671 329 1268;
  Add 1321 1123 1671; Mul 1474 342 1445; Mul 1542 304 1242; Add 1474 1474 1542; Mul 1542 345 1231;
  Mul 1219 310 1204; Add 1542 1542 1219; Mul 1219 350 1413; Mul 1193 86 1193; Mul 1691 91 1691;
  Sub 1193 1193 1691; Sub 1502 1502 1193; Mul 1193 215 1502; Add 1219 1219 1193; Sub 1542 1542 1219;
  Add 1474 1474 1542; Mul 1542 349 1320; Mul 1219 308 1406; Mul 1193 315 1109; Add 1219 1219 1193;
  Mul 1193 311 1111; Mul 1691 318 1347; Add 1193 1193 1691; Add 1219 1219 1193; Mul 1193 324 1219;
  Add 1542 1542 1193; Mul 1193 332 1518; Mul 1691 328 1354; Add 1193 1193 1691; Sub 1542 1542 1193;
  Add 1474 1474 1542; Mul 1542 213 1474; Mul 1542 323 1542; Mul 1193 336 1542; Mul 1691 351 1689;
  Add 1522 1193 1691; Mul 1645 342 1277; Mul 1653 319 1242; Add 1645 1645 1653; Mul 1653 216 1502;
  Mul 1398 350 1082; Sub 1653 1653 1398; Mul 1398 345 1662; Mul 1601 327 1204; Add 1398 1398 1601;
  Add 1653 1653 1398; Add 1645 1645 1653; Mul 1653 309 1518; Mul 1398 328 1019; Add 1653 1653 1398;
  Mul 1398 349 1640; Mul 1601 335 1219; Add 1398 1398 1601; Sub 1653 1653 1398; Add 1645 1645 1653;
  Mul 1653 213 1645; Mul 1653 323 1653; Mul 1398 325 1653; Mul 1601 354 1251; Add 1302 1398 1601;
  Add 1671 1671 1123; Add 1123 1302 1671; Add 1522 1522 1123; Sub 1524 1321 1522].
Definition casadi_f0_254 : list instruction := [
  Add 1691 1691 1193; Add 1601 1601 1398; Add 1321 1601 1321; Add 1691 1691 1321; Sub 1671 1671 1691;
  Add 1524 1524 1671; Add 1215 1215 1137; Add 1544 1544 1236; Sub 1236 1215 1544; Add 1524 1524 1236;
  Sub 1283 1283 1524; Mul 1524 19 1445; Mul 1236 304 1048; Sub 1524 1524 1236; Mul 1236 35 1413;
  Mul 1137 215 1426; Add 1236 1236 1137; Add 1524 1524 1236; Mul 1236 362 1524; Mul 1137 19 1109;
  Mul 1671 308 1048; Sub 1137 1137 1671; Mul 1671 313 1426; Mul 1398 35 1124; Add 1671 1671 1398;
  Sub 1137 1137 1671; Mul 1671 358 1137; Add 1236 1236 1671; Mul 1671 35 1445; Mul 1398 304 1426;
  Add 1671 1671 1398; Mul 1398 19 1413; Mul 1193 215 1048; Sub 1398 1398 1193; Sub 1671 1671 1398;
  Mul 1398 365 1671; Mul 1193 308 1426; Mul 1121 35 1109; Add 1193 1193 1121; Mul 1121 19 1124;
  Mul 1430 313 1048; Sub 1121 1121 1430; Add 1193 1193 1121; Mul 1121 364 1193; Add 1398 1398 1121;
  Mul 1121 367 1231; Sub 1430 1347 1157; Mul 1674 310 1430; Add 1121 1121 1674; Add 1398 1398 1121;
  Add 1236 1236 1398; Mul 1398 213 1236; Mul 1121 385 1398; Mul 1674 19 1406; Mul 1570 315 1048;
  Sub 1674 1674 1570; Mul 1570 368 1674; Mul 1533 35 1406; Mul 1687 315 1426; Add 1533 1533 1687;
  Mul 1687 39 1533; Mul 1678 373 1111; Add 1687 1687 1678; Add 1570 1570 1687; Mul 1687 372 1570;
  Mul 1678 19 1277; Mul 1606 319 1048; Sub 1678 1678 1606; Mul 1606 216 1426; Mul 1617 35 1082;
  Sub 1606 1606 1617; Sub 1678 1678 1606; Mul 1606 370 1678; Add 1687 1687 1606; Mul 1606 39 1674;
  Mul 1617 376 1533; Add 1606 1606 1617; Mul 1617 377 1606; Mul 1170 35 1277; Mul 1279 319 1426;
  Add 1170 1170 1279; Mul 1279 19 1082; Mul 1345 216 1048; Add 1279 1279 1345; Sub 1170 1170 1279;
  Mul 1279 375 1170; Add 1617 1617 1279; Add 1687 1687 1617; Mul 1617 69 1671; Add 1687 1687 1617;
  Mul 1617 62 1277; Mul 1279 55 1662; Mul 1345 48 1082; Sub 1279 1279 1345; Add 1617 1617 1279;
  Add 1617 1320 1617; Mul 1279 380 1678; Mul 1345 24 1170; Mul 1255 31 1662; Add 1345 1345 1255;
  Add 1279 1279 1345; Add 1279 1617 1279; Mul 1345 378 1279; Mul 1345 384 1345; Mul 1255 62 1406;
  Mul 1202 55 1111; Add 1255 1255 1202; Add 1255 1518 1255; Mul 1202 380 1674; Mul 1118 24 1533;
  Mul 1253 31 1111; Add 1118 1118 1253; Add 1202 1202 1118; Add 1202 1255 1202; Mul 1118 382 1202;
  Add 1345 1345 1118; Sub 1345 1687 1345; Mul 1118 366 1345; Add 1253 1121 1118; Mul 1185 362 1678;
  Mul 1547 372 1137; Add 1185 1185 1547; Mul 1547 365 1170; Mul 1643 377 1193; Add 1547 1547 1643;
  Mul 1643 367 1662; Mul 1471 327 1430; Add 1643 1643 1471; Add 1547 1547 1643; Add 1185 1185 1547;
  Mul 1547 213 1185; Mul 1643 393 1547; Mul 1471 358 1570; Mul 1052 370 1524; Add 1471 1471 1052;
  Mul 1052 364 1606; Mul 1504 375 1671; Add 1052 1052 1504; Add 1471 1471 1052; Mul 1052 69 1170;
  Sub 1471 1471 1052; Mul 1052 62 1445; Mul 1504 55 1231; Mul 1673 48 1413; Sub 1504 1504 1673;
  Add 1052 1052 1504; Add 1052 1640 1052; Mul 1504 380 1524; Mul 1673 24 1671].
Definition casadi_f0_255 : list instruction := [
  Mul 1642 31 1231; Add 1673 1673 1642; Add 1504 1504 1673; Add 1504 1052 1504; Mul 1673 378 1504;
  Mul 1642 384 1673; Mul 1443 392 1202; Add 1642 1642 1443; Sub 1642 1471 1642; Mul 1443 388 1642;
  Add 1510 1643 1443; Sub 1499 1253 1510; Mul 1269 401 1202; Mul 1701 397 1674; Mul 1452 48 1347;
  Mul 1351 55 1124; Sub 1452 1452 1351; Sub 1242 1242 1452; Mul 1452 19 1242; Mul 1351 396 1048;
  Sub 1452 1452 1351; Mul 1351 398 1426; Mul 1590 55 1109; Mul 1347 62 1347; Sub 1590 1590 1347;
  Sub 1502 1502 1590; Mul 1590 35 1502; Add 1351 1351 1590; Sub 1452 1452 1351; Mul 1351 369 1452;
  Add 1701 1701 1351; Mul 1351 400 1533; Mul 1590 396 1426; Mul 1242 35 1242; Add 1590 1590 1242;
  Mul 1502 19 1502; Mul 1242 398 1048; Sub 1502 1502 1242; Add 1590 1590 1502; Mul 1502 371 1590;
  Add 1351 1351 1502; Mul 1502 402 1111; Mul 1124 62 1124; Mul 1109 48 1109; Sub 1124 1124 1109;
  Sub 1204 1204 1124; Mul 1124 318 1204; Add 1502 1502 1124; Add 1351 1351 1502; Add 1701 1701 1351;
  Mul 1351 387 1052; Mul 1502 390 1185; Add 1351 1351 1502; Mul 1502 363 1617; Mul 1124 379 1236;
  Add 1502 1502 1124; Sub 1351 1351 1502; Add 1701 1701 1351; Mul 1351 213 1701; Mul 1351 378 1351;
  Mul 1502 384 1351; Add 1124 1269 1502; Mul 1109 397 1524; Mul 1242 358 1452; Add 1109 1109 1242;
  Mul 1242 400 1671; Mul 1347 364 1590; Add 1242 1242 1347; Mul 1347 402 1231; Mul 1557 310 1204;
  Add 1347 1347 1557; Add 1242 1242 1347; Add 1109 1109 1242; Mul 1242 405 1617; Mul 1347 362 1674;
  Mul 1557 369 1137; Add 1347 1347 1557; Mul 1557 365 1533; Mul 1218 371 1193; Add 1557 1557 1218;
  Mul 1218 367 1111; Mul 1492 318 1430; Add 1218 1218 1492; Add 1557 1557 1218; Add 1347 1347 1557;
  Mul 1557 379 1347; Add 1242 1242 1557; Mul 1557 387 1255; Mul 1218 383 1185; Add 1557 1557 1218;
  Sub 1242 1242 1557; Add 1109 1109 1242; Mul 1242 213 1109; Mul 1242 378 1242; Mul 1557 391 1242;
  Mul 1218 406 1504; Add 1492 1557 1218; Mul 1600 397 1678; Mul 1498 372 1452; Add 1600 1600 1498;
  Mul 1498 400 1170; Mul 1490 377 1590; Add 1498 1498 1490; Mul 1490 402 1662; Mul 1595 327 1204;
  Add 1490 1490 1595; Add 1498 1498 1490; Add 1600 1600 1498; Mul 1498 363 1255; Mul 1490 383 1236;
  Add 1498 1498 1490; Mul 1490 405 1052; Mul 1595 390 1347; Add 1490 1490 1595; Sub 1498 1498 1490;
  Add 1600 1600 1498; Mul 1498 213 1600; Mul 1498 378 1498; Mul 1490 381 1498; Mul 1595 409 1279;
  Add 1192 1490 1595; Add 1502 1502 1269; Add 1269 1192 1502; Add 1492 1492 1269; Sub 1509 1124 1492;
  Add 1218 1218 1557; Add 1595 1595 1490; Add 1124 1595 1124; Add 1218 1218 1124; Sub 1502 1502 1218;
  Add 1509 1509 1502; Add 1443 1443 1643; Add 1118 1118 1121; Sub 1121 1443 1118; Add 1509 1509 1121;
  Sub 1499 1499 1509; Mul 1509 413 1524; Sub 1121 1137 1077; Mul 1643 358 1121; Add 1509 1509 1643;
  Mul 1643 16 1671; Mul 1502 364 1076; Sub 1643 1643 1502; Mul 1502 15 1231; Mul 1490 310 1680;
  Add 1502 1502 1490; Sub 1643 1643 1502; Mul 1502 419 1643; Mul 1490 16 1193].
Definition casadi_f0_256 : list instruction := [
  Mul 1557 365 1076; Sub 1490 1490 1557; Mul 1557 367 1680; Mul 1172 15 1430; Add 1557 1557 1172;
  Sub 1490 1490 1557; Mul 1557 418 1490; Add 1502 1502 1557; Mul 1557 15 1671; Mul 1172 364 1680;
  Add 1557 1557 1172; Mul 1172 16 1231; Mul 1513 310 1076; Sub 1172 1172 1513; Add 1557 1557 1172;
  Mul 1172 422 1557; Mul 1513 365 1680; Mul 1549 15 1193; Add 1513 1513 1549; Mul 1549 16 1430;
  Mul 1151 367 1076; Sub 1549 1549 1151; Add 1513 1513 1549; Mul 1549 421 1513; Add 1172 1172 1549;
  Add 1502 1502 1172; Add 1509 1509 1502; Mul 1502 213 1509; Mul 1172 439 1502; Mul 1549 423 1674;
  Mul 1151 16 1533; Mul 1400 371 1076; Sub 1151 1151 1400; Mul 1400 15 1111; Mul 1517 318 1680;
  Add 1400 1400 1517; Sub 1151 1151 1400; Mul 1400 40 1151; Mul 1517 15 1533; Mul 1563 371 1680;
  Add 1517 1517 1563; Mul 1563 16 1111; Mul 1647 318 1076; Sub 1563 1563 1647; Add 1517 1517 1563;
  Mul 1563 42 1517; Add 1400 1400 1563; Add 1549 1549 1400; Mul 1400 372 1549; Mul 1563 424 1678;
  Add 1400 1400 1563; Mul 1563 40 1674; Mul 1647 14 1151; Mul 1165 18 1517; Add 1647 1647 1165;
  Add 1563 1563 1647; Mul 1647 429 1563; Mul 1165 16 1170; Mul 1359 377 1076; Sub 1165 1165 1359;
  Mul 1359 15 1662; Mul 1585 327 1680; Add 1359 1359 1585; Sub 1165 1165 1359; Mul 1359 428 1165;
  Add 1647 1647 1359; Add 1400 1400 1647; Mul 1647 43 1643; Mul 1359 431 1524; Sub 1647 1647 1359;
  Add 1400 1400 1647; Mul 1647 198 1678; Mul 1359 25 1170; Mul 1585 32 1662; Add 1359 1359 1585;
  Add 1647 1647 1359; Add 1647 1617 1647; Mul 1359 433 1678; Mul 1585 26 1165; Mul 1107 15 1170;
  Mul 1562 377 1680; Add 1107 1107 1562; Mul 1562 16 1662; Mul 1233 327 1076; Sub 1562 1562 1233;
  Add 1107 1107 1562; Mul 1562 28 1107; Add 1585 1585 1562; Add 1359 1359 1585; Add 1359 1647 1359;
  Mul 1585 430 1359; Mul 1585 438 1585; Mul 1562 198 1674; Mul 1233 25 1533; Mul 1493 32 1111;
  Add 1233 1233 1493; Add 1562 1562 1233; Add 1562 1255 1562; Mul 1233 433 1674; Mul 1493 26 1151;
  Mul 1252 28 1517; Add 1493 1493 1252; Add 1233 1233 1493; Add 1233 1562 1233; Mul 1493 435 1233;
  Add 1585 1585 1493; Sub 1585 1400 1585; Mul 1493 420 1585; Add 1252 1172 1493; Mul 1258 413 1678;
  Mul 1330 372 1121; Add 1258 1258 1330; Mul 1330 419 1165; Mul 1435 429 1490; Add 1330 1330 1435;
  Mul 1435 422 1107; Mul 1526 436 1513; Add 1435 1435 1526; Add 1330 1330 1435; Add 1258 1258 1330;
  Mul 1330 213 1258; Mul 1435 447 1330; Mul 1526 358 1549; Mul 1200 424 1524; Add 1526 1526 1200;
  Mul 1200 418 1563; Mul 1289 428 1643; Add 1200 1200 1289; Add 1526 1526 1200; Mul 1200 43 1165;
  Mul 1289 431 1678; Sub 1200 1200 1289; Sub 1526 1526 1200; Mul 1200 198 1524; Mul 1289 25 1671;
  Mul 1605 32 1231; Add 1289 1289 1605; Add 1200 1200 1289; Add 1200 1052 1200; Mul 1289 433 1524;
  Mul 1605 26 1643; Mul 1270 28 1557; Add 1605 1605 1270; Add 1289 1289 1605; Add 1289 1200 1289;
  Mul 1605 430 1289; Mul 1270 438 1605; Mul 1267 446 1233; Add 1270 1270 1267].
Definition casadi_f0_257 : list instruction := [
  Sub 1270 1526 1270; Mul 1267 442 1270; Add 1196 1435 1267; Sub 1681 1252 1196; Mul 1665 455 1233;
  Mul 1620 450 1674; Mul 1367 25 1430; Mul 1106 32 1193; Sub 1367 1367 1106; Sub 1452 1452 1367;
  Mul 1367 369 1452; Add 1620 1620 1367; Mul 1367 453 1151; Mul 1106 32 1137; Mul 1430 198 1430;
  Sub 1106 1106 1430; Sub 1590 1590 1106; Mul 1106 16 1590; Mul 1430 452 1076; Sub 1106 1106 1430;
  Mul 1430 454 1680; Mul 1193 198 1193; Mul 1137 25 1137; Sub 1193 1193 1137; Sub 1204 1204 1193;
  Mul 1193 15 1204; Add 1430 1430 1193; Sub 1106 1106 1430; Mul 1430 425 1106; Add 1367 1367 1430;
  Mul 1430 456 1517; Mul 1193 452 1680; Mul 1590 15 1590; Add 1193 1193 1590; Mul 1204 16 1204;
  Mul 1590 454 1076; Sub 1204 1204 1590; Add 1193 1193 1204; Mul 1204 427 1193; Add 1430 1430 1204;
  Add 1367 1367 1430; Add 1620 1620 1367; Mul 1367 441 1200; Mul 1430 444 1258; Add 1367 1367 1430;
  Mul 1430 417 1647; Mul 1204 432 1509; Add 1430 1430 1204; Sub 1367 1367 1430; Add 1620 1620 1367;
  Mul 1367 213 1620; Mul 1367 430 1367; Mul 1430 438 1367; Add 1204 1665 1430; Mul 1590 450 1524;
  Mul 1137 358 1452; Add 1590 1590 1137; Mul 1137 453 1643; Mul 1326 418 1106; Add 1137 1137 1326;
  Mul 1557 456 1557; Mul 1326 421 1193; Add 1557 1557 1326; Add 1137 1137 1557; Add 1590 1590 1137;
  Mul 1137 459 1647; Mul 1557 413 1674; Mul 1121 369 1121; Add 1557 1557 1121; Mul 1121 419 1151;
  Mul 1490 425 1490; Add 1121 1121 1490; Mul 1517 422 1517; Mul 1513 427 1513; Add 1517 1517 1513;
  Add 1121 1121 1517; Add 1557 1557 1121; Mul 1121 432 1557; Add 1137 1137 1121; Mul 1121 441 1562;
  Mul 1517 437 1258; Add 1121 1121 1517; Sub 1137 1137 1121; Add 1590 1590 1137; Mul 1137 213 1590;
  Mul 1137 430 1137; Mul 1121 445 1137; Mul 1517 460 1289; Add 1513 1121 1517; Mul 1490 450 1678;
  Mul 1452 372 1452; Add 1490 1490 1452; Mul 1452 453 1165; Mul 1106 429 1106; Add 1452 1452 1106;
  Mul 1106 456 1107; Mul 1193 436 1193; Add 1106 1106 1193; Add 1452 1452 1106; Add 1490 1490 1452;
  Mul 1452 417 1562; Mul 1106 437 1509; Add 1452 1452 1106; Mul 1106 459 1200; Mul 1193 444 1557;
  Add 1106 1106 1193; Sub 1452 1452 1106; Add 1490 1490 1452; Mul 1452 213 1490; Mul 1452 430 1452;
  Mul 1106 434 1452; Mul 1193 463 1359; Add 1326 1106 1193; Add 1430 1430 1665; Add 1665 1326 1430;
  Add 1513 1513 1665; Sub 1250 1204 1513; Add 1517 1517 1121; Add 1193 1193 1106; Add 1204 1193 1204;
  Add 1517 1517 1204; Sub 1430 1430 1517; Add 1250 1250 1430; Add 1267 1267 1435; Add 1493 1493 1172;
  Sub 1172 1267 1493; Add 1250 1250 1172; Sub 1681 1681 1250; Add 1499 1499 1681; Add 1283 1283 1499;
  Add 1090 1090 1283; Add 1408 1408 1090; Mul 1408 0 1408; Mul 1090 235 1459; Add 1408 1408 1090;
  Mul 1209 261 1209; Mul 1090 262 1576; Add 1209 1209 1090; Mul 1566 315 1566; Mul 1090 316 1406;
  Add 1566 1566 1090; Mul 1570 369 1570; Mul 1090 370 1674; Add 1570 1570 1090; Mul 1606 371 1606;
  Mul 1090 375 1533; Add 1606 1606 1090; Add 1570 1570 1606; Mul 1549 369 1549].
Definition casadi_f0_258 : list instruction := [
  Mul 1606 424 1674; Add 1549 1549 1606; Mul 1563 425 1563; Mul 1606 428 1151; Add 1563 1563 1606;
  Add 1549 1549 1563; Add 1563 1570 1549; Sub 1606 1504 1289; Mul 1090 480 1606; Sub 1283 1279 1359;
  Mul 1250 1197 1283; Add 1172 1090 1250; Mul 1172 20 1172; Add 1563 1563 1172; Add 1172 1566 1563;
  Mul 1435 485 1504; Mul 1430 50 1289; Add 1435 1435 1430; Sub 1430 1689 1435; Mul 1106 487 1430;
  Mul 1121 485 1279; Mul 1139 50 1359; Add 1121 1121 1139; Sub 1139 1251 1121; Mul 1432 1286 1139;
  Add 1543 1106 1432; Mul 1543 37 1543; Add 1172 1172 1543; Add 1543 1209 1172; Mul 1694 493 1689;
  Mul 1373 83 1435; Add 1694 1694 1373; Sub 1373 1162 1694; Mul 1520 495 1373; Mul 1093 493 1251;
  Mul 1584 83 1121; Add 1093 1093 1584; Sub 1584 1577 1093; Mul 1140 1294 1584; Add 1244 1520 1140;
  Mul 1244 80 1244; Add 1543 1543 1244; Mul 1244 237 1505; Mul 1609 113 1609; Sub 1244 1244 1609;
  Sub 1609 1543 1244; Mul 1084 501 1577; Mul 1376 104 1093; Add 1084 1084 1376; Sub 1376 1324 1084;
  Mul 1540 1299 1376; Mul 1310 501 1162; Mul 1227 104 1694; Add 1310 1310 1227; Add 1227 1481 1310;
  Mul 1421 503 1227; Sub 1119 1540 1421; Mul 1119 100 1119; Add 1609 1609 1119; Mul 1609 508 1609;
  Mul 1119 216 1587; Mul 1332 219 1082; Sub 1119 1119 1332; Mul 1332 215 1088; Mul 1026 227 1413;
  Add 1332 1332 1026; Add 1119 1119 1332; Mul 1332 500 1119; Add 1609 1609 1332; Add 1332 1471 1526;
  Mul 1606 20 1606; Mul 1026 512 1606; Sub 1574 1202 1233; Mul 1634 511 1574; Add 1026 1026 1634;
  Sub 1332 1332 1026; Add 1026 1500 1332; Mul 1430 37 1430; Mul 1634 516 1430; Mul 1114 485 1202;
  Mul 1698 50 1233; Add 1114 1114 1698; Sub 1698 1375 1114; Mul 1467 514 1698; Add 1634 1634 1467;
  Sub 1026 1026 1634; Add 1634 1254 1026; Mul 1373 80 1373; Mul 1467 520 1373; Mul 1616 493 1375;
  Mul 1483 83 1114; Add 1616 1616 1483; Sub 1483 1410 1616; Mul 1191 518 1483; Add 1467 1467 1191;
  Sub 1634 1634 1467; Add 1467 1300 1634; Mul 1227 100 1227; Mul 1191 524 1227; Mul 1496 501 1410;
  Mul 1465 104 1616; Add 1496 1496 1465; Add 1465 1144 1496; Mul 1528 522 1465; Add 1191 1191 1528;
  Add 1467 1467 1191; Mul 1191 526 1467; Mul 1528 221 1505; Mul 1235 113 1235; Add 1528 1528 1235;
  Mul 1103 114 1103; Mul 1235 218 1240; Sub 1103 1103 1235; Add 1528 1528 1103; Mul 1103 216 1528;
  Mul 1235 525 1082; Sub 1103 1103 1235; Mul 1235 521 1103; Add 1191 1191 1235; Add 1235 1687 1400;
  Mul 1495 20 1283; Mul 1495 512 1495; Mul 1296 529 1574; Add 1495 1495 1296; Sub 1235 1235 1495;
  Add 1495 1022 1235; Mul 1296 37 1139; Mul 1296 516 1296; Mul 1333 531 1698; Add 1296 1296 1333;
  Sub 1495 1495 1296; Add 1296 1449 1495; Mul 1333 80 1584; Mul 1333 520 1333; Mul 1246 533 1483;
  Add 1333 1333 1246; Sub 1296 1296 1333; Add 1333 1575 1296; Mul 1246 100 1376; Mul 1246 524 1246;
  Mul 1130 535 1465; Sub 1246 1246 1130; Sub 1333 1333 1246; Mul 1246 536 1333; Mul 1130 215 1528;
  Mul 1363 525 1413; Add 1130 1130 1363; Mul 1363 534 1130; Add 1246 1246 1363].
Definition casadi_f0_259 : list instruction := [
  Add 1191 1191 1246; Sub 1609 1609 1191; Mul 1191 120 1310; Mul 1246 527 1481; Sub 1191 1191 1246;
  Mul 1246 539 1191; Mul 1363 120 1496; Mul 1648 527 1144; Sub 1363 1363 1648; Mul 1648 526 1363;
  Mul 1208 538 1103; Add 1648 1648 1208; Mul 1208 508 1191; Mul 1589 537 1119; Add 1208 1208 1589;
  Add 1648 1648 1208; Mul 1208 540 1528; Mul 1589 214 1082; Mul 1100 525 1589; Sub 1208 1208 1100;
  Sub 1648 1648 1208; Mul 1648 141 1648; Mul 1100 537 1648; Add 1246 1246 1100; Mul 1100 527 1324;
  Mul 1558 120 1084; Add 1100 1100 1558; Mul 1558 546 1100; Mul 1075 544 1528; Mul 1060 214 1413;
  Mul 1016 525 1060; Add 1075 1075 1016; Mul 1016 508 1100; Mul 1697 543 1119; Add 1016 1016 1697;
  Mul 1697 536 1363; Mul 1034 538 1130; Add 1697 1697 1034; Add 1016 1016 1697; Sub 1016 1075 1016;
  Mul 1016 141 1016; Mul 1697 543 1016; Add 1558 1558 1697; Sub 1246 1246 1558; Add 1609 1609 1246;
  Mul 1246 553 1281; Mul 1558 238 1466; Mul 1424 236 1424; Mul 1697 144 1082; Sub 1424 1424 1697;
  Add 1558 1558 1424; Mul 1424 224 1558; Mul 1697 542 1466; Add 1424 1424 1697; Mul 1466 144 1466;
  Mul 1697 549 1082; Sub 1466 1466 1697; Mul 1697 216 1466; Mul 1034 548 1082; Sub 1697 1697 1034;
  Add 1424 1424 1697; Mul 1697 1334 1481; Mul 1034 1336 1144; Add 1205 1697 1034; Mul 1205 212 1205;
  Sub 1205 1424 1205; Mul 1695 249 1205; Add 1129 1246 1695; Mul 1572 556 1688; Mul 1558 220 1558;
  Mul 1507 542 1507; Sub 1558 1558 1507; Mul 1466 215 1466; Mul 1507 548 1413; Add 1466 1466 1507;
  Sub 1558 1558 1466; Mul 1466 241 1324; Mul 1625 225 1625; Sub 1466 1466 1625; Sub 1466 1558 1466;
  Mul 1625 244 1466; Add 1507 1572 1625; Sub 1129 1129 1507; Mul 1507 242 1476; Mul 1527 223 1144;
  Sub 1507 1507 1527; Mul 1527 1342 1324; Sub 1697 1527 1697; Mul 1697 212 1697; Sub 1697 1697 1244;
  Mul 1322 249 1697; Mul 1607 551 1281; Add 1427 1322 1607; Mul 1030 560 1664; Mul 1442 213 1528;
  Mul 1418 243 1442; Add 1514 1030 1418; Sub 1427 1427 1514; Add 1427 1507 1427; Sub 1129 1129 1427;
  Sub 1427 1244 1424; Mul 1514 219 1427; Mul 1182 557 1587; Add 1514 1514 1182; Mul 1182 227 1558;
  Mul 1486 555 1088; Add 1182 1182 1486; Add 1514 1514 1182; Mul 1182 525 1300; Mul 1486 239 1528;
  Add 1182 1182 1486; Add 1514 1514 1182; Mul 1182 340 1324; Mul 1486 231 1088; Mul 1166 227 1481;
  Sub 1486 1486 1166; Mul 1166 219 1324; Mul 1511 225 1587; Add 1166 1166 1511; Sub 1486 1486 1166;
  Mul 1486 212 1486; Mul 1166 225 1486; Add 1182 1182 1166; Mul 1166 242 1587; Mul 1511 219 1144;
  Sub 1166 1166 1511; Mul 1511 231 1528; Mul 1579 525 1481; Sub 1511 1511 1579; Sub 1166 1166 1511;
  Sub 1166 1564 1166; Mul 1166 212 1166; Mul 1511 242 1166; Mul 1579 559 1144; Sub 1511 1511 1579;
  Add 1182 1182 1511; Sub 1514 1514 1182; Mul 1514 213 1514; Sub 1129 1129 1514; Mul 1182 567 1582;
  Mul 1511 260 1679; Mul 1579 263 1506; Mul 1631 127 1082; Sub 1579 1579 1631; Add 1511 1511 1579;
  Mul 1579 265 1511; Mul 1631 547 1679; Add 1579 1579 1631; Mul 1679 127 1679].
Definition casadi_f0_260 : list instruction := [
  Mul 1506 268 1506; Mul 1631 563 1082; Sub 1506 1506 1631; Add 1679 1679 1506; Mul 1506 216 1679;
  Mul 1631 562 1082; Sub 1506 1506 1631; Add 1579 1579 1506; Mul 1506 1138 1162; Mul 1631 1357 1410;
  Add 1146 1506 1631; Mul 1146 269 1146; Add 1146 1579 1146; Mul 1603 258 1146; Add 1651 1182 1603;
  Mul 1387 570 1699; Mul 1511 253 1511; Mul 1434 547 1434; Add 1511 1511 1434; Mul 1679 215 1679;
  Mul 1434 562 1413; Add 1679 1679 1434; Sub 1511 1511 1679; Mul 1576 135 1576; Sub 1511 1511 1576;
  Mul 1329 271 1329; Mul 1576 283 1577; Add 1329 1329 1576; Sub 1329 1511 1329; Mul 1576 279 1329;
  Add 1679 1387 1576; Sub 1651 1651 1679; Mul 1679 300 1410; Mul 1434 275 1696; Add 1484 1679 1434;
  Mul 1461 271 1094; Mul 1690 292 1577; Add 1396 1461 1690; Add 1484 1484 1396; Mul 1396 1366 1577;
  Add 1506 1506 1396; Mul 1506 269 1506; Add 1506 1209 1506; Mul 1423 258 1506; Mul 1285 565 1582;
  Add 1216 1423 1285; Mul 1656 574 1113; Mul 1399 213 1314; Mul 1539 284 1399; Add 1171 1656 1539;
  Sub 1216 1216 1171; Add 1484 1484 1216; Sub 1651 1651 1484; Mul 1484 571 1179; Add 1216 1579 1209;
  Mul 1171 255 1216; Sub 1484 1484 1171; Mul 1171 278 1511; Mul 1098 569 1303; Add 1171 1171 1098;
  Add 1484 1484 1171; Mul 1171 296 1254; Mul 1098 280 1314; Add 1171 1171 1098; Add 1484 1484 1171;
  Mul 1171 471 1577; Mul 1098 278 1162; Mul 1401 282 1303; Add 1098 1098 1401; Mul 1401 255 1577;
  Mul 1682 271 1179; Add 1401 1401 1682; Sub 1098 1098 1401; Sub 1098 1282 1098; Mul 1098 269 1098;
  Mul 1401 271 1098; Add 1171 1171 1401; Mul 1401 573 1410; Mul 1682 255 1410; Mul 1071 275 1179;
  Add 1682 1682 1071; Mul 1071 296 1162; Mul 1479 282 1314; Add 1071 1071 1479; Sub 1682 1682 1071;
  Sub 1682 1161 1682; Mul 1682 269 1682; Mul 1071 275 1682; Add 1401 1401 1071; Sub 1171 1171 1401;
  Add 1484 1484 1171; Mul 1484 213 1484; Sub 1651 1651 1484; Mul 1171 581 1361; Mul 1401 314 1277;
  Mul 1071 317 1662; Mul 1479 128 1082; Sub 1071 1071 1479; Add 1401 1401 1071; Mul 1071 319 1401;
  Mul 1479 561 1277; Add 1071 1071 1479; Mul 1277 128 1277; Mul 1479 322 1662; Mul 1675 577 1082;
  Sub 1479 1479 1675; Add 1277 1277 1479; Mul 1479 216 1277; Mul 1675 576 1082; Sub 1479 1479 1675;
  Add 1071 1071 1479; Mul 1479 1379 1689; Mul 1675 1381 1375; Add 1368 1479 1675; Mul 1368 323 1368;
  Add 1368 1071 1368; Mul 1131 312 1368; Add 1340 1171 1131; Mul 1245 584 1122; Mul 1401 304 1401;
  Mul 1445 561 1445; Add 1401 1401 1445; Mul 1277 215 1277; Mul 1445 576 1413; Add 1277 1277 1445;
  Sub 1401 1401 1277; Mul 1406 131 1406; Sub 1401 1401 1406; Mul 1025 325 1025; Mul 1406 337 1251;
  Add 1025 1025 1406; Sub 1025 1401 1025; Mul 1406 333 1025; Add 1277 1245 1406; Sub 1340 1340 1277;
  Mul 1277 354 1375; Mul 1445 329 1653; Add 1541 1277 1445; Mul 1389 325 1268; Mul 1188 346 1251;
  Add 1478 1389 1188; Add 1541 1541 1478; Mul 1478 1390 1251; Add 1479 1479 1478; Mul 1479 323 1479;
  Add 1479 1566 1479; Mul 1275 312 1479; Mul 1210 579 1361; Add 1546 1275 1210].
Definition casadi_f0_261 : list instruction := [
  Mul 1301 588 1458; Mul 1491 213 1219; Mul 1591 338 1491; Add 1288 1301 1591; Sub 1546 1546 1288;
  Add 1541 1541 1546; Sub 1340 1340 1541; Mul 1541 585 1019; Add 1546 1071 1566; Mul 1288 309 1546;
  Sub 1541 1541 1288; Mul 1288 332 1401; Mul 1312 583 1354; Add 1288 1288 1312; Add 1541 1541 1288;
  Mul 1288 349 1500; Mul 1312 334 1219; Add 1288 1288 1312; Add 1541 1541 1288; Mul 1288 473 1251;
  Mul 1312 332 1689; Mul 1177 336 1354; Add 1312 1312 1177; Mul 1177 309 1251; Mul 1415 325 1019;
  Add 1177 1177 1415; Sub 1312 1312 1177; Sub 1312 1036 1312; Mul 1312 323 1312; Mul 1177 325 1312;
  Add 1288 1288 1177; Mul 1177 587 1375; Mul 1415 309 1375; Mul 1104 329 1019; Add 1415 1415 1104;
  Mul 1104 349 1689; Mul 1081 336 1219; Add 1104 1104 1081; Sub 1415 1415 1104; Sub 1415 1645 1415;
  Mul 1415 323 1415; Mul 1104 329 1415; Add 1177 1177 1104; Sub 1288 1288 1177; Add 1541 1541 1288;
  Mul 1541 213 1541; Sub 1340 1340 1541; Mul 1288 594 1398; Mul 1177 368 1678; Mul 1104 39 1170;
  Mul 1081 373 1662; Add 1104 1104 1081; Add 1177 1177 1104; Mul 1104 372 1177; Mul 1081 575 1678;
  Add 1104 1104 1081; Mul 1081 39 1678; Mul 1195 376 1170; Add 1081 1081 1195; Mul 1195 377 1081;
  Mul 1170 590 1170; Add 1195 1195 1170; Add 1104 1104 1195; Mul 1195 1404 1504; Mul 1170 1405 1202;
  Add 1355 1195 1170; Mul 1355 378 1355; Add 1355 1104 1355; Mul 1573 366 1355; Add 1224 1288 1573;
  Mul 1659 597 1547; Mul 1177 358 1177; Mul 1362 575 1524; Add 1177 1177 1362; Mul 1081 364 1081;
  Mul 1671 590 1671; Add 1081 1081 1671; Add 1177 1177 1081; Mul 1533 69 1533; Add 1177 1177 1533;
  Mul 1673 381 1673; Mul 1533 392 1279; Add 1673 1673 1533; Sub 1673 1177 1673; Mul 1533 388 1673;
  Add 1081 1659 1533; Sub 1224 1224 1081; Mul 1081 409 1202; Mul 1671 384 1498; Add 1362 1081 1671;
  Mul 1311 381 1351; Mul 1438 401 1279; Add 1378 1311 1438; Add 1362 1362 1378; Mul 1378 1414 1279;
  Add 1195 1195 1378; Mul 1195 378 1195; Add 1195 1570 1195; Mul 1271 366 1195; Mul 1339 592 1398;
  Add 1480 1271 1339; Mul 1455 601 1642; Mul 1120 213 1347; Mul 1444 393 1120; Add 1318 1455 1444;
  Sub 1480 1480 1318; Add 1362 1362 1480; Sub 1224 1224 1362; Mul 1362 598 1236; Add 1480 1104 1570;
  Mul 1318 363 1480; Sub 1362 1362 1318; Mul 1318 387 1177; Mul 1164 596 1185; Add 1318 1318 1164;
  Add 1362 1362 1318; Mul 1318 405 1471; Mul 1164 389 1347; Add 1318 1318 1164; Add 1362 1362 1318;
  Mul 1318 475 1279; Mul 1164 387 1504; Mul 1394 391 1185; Add 1164 1164 1394; Mul 1394 363 1279;
  Mul 1272 381 1236; Add 1394 1394 1272; Sub 1164 1164 1394; Sub 1164 1701 1164; Mul 1164 378 1164;
  Mul 1394 381 1164; Add 1318 1318 1394; Mul 1394 600 1202; Mul 1272 363 1202; Mul 1147 384 1236;
  Add 1272 1272 1147; Mul 1147 405 1504; Mul 1535 391 1347; Add 1147 1147 1535; Sub 1272 1272 1147;
  Sub 1272 1600 1272; Mul 1272 378 1272; Mul 1147 384 1272; Add 1394 1394 1147; Sub 1318 1318 1394;
  Add 1362 1362 1318; Mul 1362 213 1362; Sub 1224 1224 1362; Mul 1318 607 1502].
Definition casadi_f0_262 : list instruction := [
  Mul 1394 423 1678; Mul 1147 40 1165; Mul 1535 42 1107; Add 1147 1147 1535; Add 1394 1394 1147;
  Mul 1147 372 1394; Mul 1535 589 1678; Add 1147 1147 1535; Mul 1535 40 1678; Mul 1652 14 1165;
  Mul 1107 18 1107; Add 1652 1652 1107; Add 1535 1535 1652; Mul 1652 429 1535; Mul 1165 603 1165;
  Add 1652 1652 1165; Add 1147 1147 1652; Mul 1652 1428 1289; Mul 1165 1264 1233; Add 1107 1652 1165;
  Mul 1107 430 1107; Add 1107 1147 1107; Mul 1284 420 1107; Add 1169 1318 1284; Mul 1384 610 1330;
  Mul 1394 358 1394; Mul 1261 589 1524; Add 1394 1394 1261; Mul 1535 418 1535; Mul 1643 603 1643;
  Add 1535 1535 1643; Add 1394 1394 1535; Mul 1151 43 1151; Mul 1535 431 1674; Sub 1151 1151 1535;
  Add 1394 1394 1151; Mul 1605 434 1605; Mul 1151 446 1359; Add 1605 1605 1151; Sub 1605 1394 1605;
  Mul 1151 442 1605; Add 1535 1384 1151; Sub 1169 1169 1535; Mul 1535 463 1233; Mul 1643 438 1452;
  Add 1261 1535 1643; Mul 1433 434 1367; Mul 1156 455 1359; Add 1237 1433 1156; Add 1261 1261 1237;
  Mul 1237 1437 1359; Add 1652 1652 1237; Mul 1652 430 1652; Add 1652 1549 1652; Mul 1092 420 1652;
  Mul 1128 605 1502; Add 1102 1092 1128; Mul 1125 614 1270; Mul 1386 213 1557; Mul 1018 447 1386;
  Add 1115 1125 1018; Sub 1102 1102 1115; Add 1261 1261 1102; Sub 1169 1169 1261; Mul 1261 13 1509;
  Add 1102 1147 1549; Mul 1115 417 1102; Sub 1261 1261 1115; Mul 1115 441 1394; Mul 1668 609 1258;
  Add 1115 1115 1668; Add 1261 1261 1115; Mul 1115 459 1526; Mul 1668 443 1557; Add 1115 1115 1668;
  Add 1261 1261 1115; Mul 1115 477 1359; Mul 1668 441 1289; Mul 1372 445 1258; Add 1668 1668 1372;
  Mul 1372 417 1359; Mul 1206 434 1509; Add 1372 1372 1206; Sub 1668 1668 1372; Sub 1668 1620 1668;
  Mul 1668 430 1668; Mul 1372 434 1668; Add 1115 1115 1372; Mul 1372 611 1233; Mul 1206 417 1233;
  Mul 1660 438 1509; Add 1206 1206 1660; Mul 1660 459 1289; Mul 1391 445 1557; Add 1660 1660 1391;
  Sub 1206 1206 1660; Sub 1206 1490 1206; Mul 1206 430 1206; Mul 1660 438 1206; Add 1372 1372 1660;
  Sub 1115 1115 1372; Add 1261 1261 1115; Mul 1261 213 1261; Sub 1169 1169 1261; Add 1224 1224 1169;
  Add 1340 1340 1224; Add 1651 1651 1340; Add 1129 1129 1651; Mul 1129 216 1129; Mul 1115 554 1082;
  Sub 1129 1129 1115; Mul 1115 242 1658; Mul 1372 230 1144; Sub 1115 1115 1372; Mul 1372 560 1447;
  Mul 1660 248 1442; Add 1391 1372 1660; Mul 1697 244 1697; Mul 1352 551 1688; Add 1051 1697 1352;
  Sub 1391 1391 1051; Sub 1391 1115 1391; Mul 1051 556 1281; Mul 1419 249 1466; Add 1489 1051 1419;
  Mul 1463 558 1688; Sub 1527 1527 1034; Mul 1527 212 1527; Add 1527 1427 1527; Mul 1034 244 1527;
  Add 1346 1463 1034; Sub 1489 1489 1346; Add 1391 1391 1489; Mul 1489 219 1558; Mul 1346 555 1587;
  Add 1489 1489 1346; Mul 1346 227 1424; Mul 1494 550 1088; Add 1346 1346 1494; Add 1489 1489 1346;
  Mul 1346 525 1575; Mul 1494 246 1528; Add 1346 1346 1494; Add 1489 1489 1346; Mul 1346 231 1486;
  Mul 1494 340 1481; Sub 1346 1346 1494; Mul 1494 525 1324; Mul 1641 225 1528].
Definition casadi_f0_263 : list instruction := [
  Add 1494 1494 1641; Mul 1641 242 1088; Mul 1152 227 1144; Sub 1641 1641 1152; Sub 1494 1494 1641;
  Add 1494 1213 1494; Mul 1494 212 1494; Mul 1641 242 1494; Mul 1152 616 1144; Sub 1641 1641 1152;
  Sub 1346 1346 1641; Add 1489 1489 1346; Mul 1489 213 1489; Add 1391 1391 1489; Mul 1346 570 1582;
  Mul 1641 258 1329; Add 1152 1346 1641; Mul 1097 572 1699; Add 1396 1396 1631; Mul 1396 269 1396;
  Sub 1396 1396 1216; Mul 1631 279 1396; Add 1241 1097 1631; Sub 1152 1152 1241; Mul 1241 297 1410;
  Mul 1133 275 1468; Add 1548 1241 1133; Mul 1503 282 1094; Mul 1512 292 1162; Add 1686 1503 1512;
  Add 1548 1548 1686; Mul 1686 574 1552; Mul 1440 276 1399; Add 1350 1686 1440; Mul 1506 279 1506;
  Mul 1371 565 1699; Add 1536 1506 1371; Sub 1350 1350 1536; Add 1548 1548 1350; Sub 1152 1152 1548;
  Mul 1548 255 1511; Mul 1350 569 1179; Add 1548 1548 1350; Mul 1350 278 1579; Mul 1536 564 1303;
  Add 1350 1350 1536; Add 1548 1548 1350; Mul 1350 296 1449; Mul 1536 266 1314; Add 1350 1350 1536;
  Add 1548 1548 1350; Mul 1350 617 1410; Mul 1536 296 1577; Mul 1515 271 1314; Add 1536 1536 1515;
  Mul 1515 278 1410; Mul 1243 275 1303; Add 1515 1515 1243; Sub 1536 1536 1515; Sub 1536 1089 1536;
  Mul 1536 269 1536; Mul 1515 275 1536; Add 1350 1350 1515; Mul 1515 471 1162; Mul 1243 282 1098;
  Add 1515 1515 1243; Sub 1350 1350 1515; Add 1548 1548 1350; Mul 1548 213 1548; Add 1152 1152 1548;
  Mul 1350 584 1361; Mul 1515 312 1025; Add 1243 1350 1515; Mul 1550 586 1122; Add 1478 1478 1675;
  Mul 1478 323 1478; Sub 1478 1478 1546; Mul 1675 333 1478; Add 1380 1550 1675; Sub 1243 1243 1380;
  Mul 1380 351 1375; Mul 1337 329 1542; Add 1110 1380 1337; Mul 1292 336 1268; Mul 1588 346 1689;
  Add 1142 1292 1588; Add 1110 1110 1142; Mul 1142 588 1313; Mul 1431 330 1491; Add 1358 1142 1431;
  Mul 1479 333 1479; Mul 1677 579 1122; Add 1571 1479 1677; Sub 1358 1358 1571; Add 1110 1110 1358;
  Sub 1243 1243 1110; Mul 1110 309 1401; Mul 1358 583 1019; Add 1110 1110 1358; Mul 1358 332 1071;
  Mul 1571 578 1354; Add 1358 1358 1571; Add 1110 1110 1358; Mul 1358 349 1022; Mul 1571 320 1219;
  Add 1358 1358 1571; Add 1110 1110 1358; Mul 1358 619 1375; Mul 1571 349 1251; Mul 1604 325 1219;
  Add 1571 1571 1604; Mul 1604 332 1375; Mul 1598 329 1354; Add 1604 1604 1598; Sub 1571 1571 1604;
  Sub 1571 1474 1571; Mul 1571 323 1571; Mul 1604 329 1571; Add 1358 1358 1604; Mul 1604 473 1689;
  Mul 1598 336 1312; Add 1604 1604 1598; Sub 1358 1358 1604; Add 1110 1110 1358; Mul 1110 213 1110;
  Add 1243 1243 1110; Mul 1358 597 1398; Mul 1604 366 1673; Add 1598 1358 1604; Mul 1580 599 1547;
  Add 1378 1378 1170; Mul 1378 378 1378; Sub 1378 1378 1480; Mul 1170 388 1378; Add 1259 1580 1170;
  Sub 1598 1598 1259; Mul 1259 406 1202; Mul 1327 384 1242; Add 1525 1259 1327; Mul 1473 391 1351;
  Mul 1633 401 1504; Add 1297 1473 1633; Add 1525 1525 1297; Mul 1297 601 1345; Mul 1356 385 1120;
  Add 1223 1297 1356; Mul 1195 388 1195; Mul 1134 592 1547; Add 1416 1195 1134].
Definition casadi_f0_264 : list instruction := [
  Sub 1223 1223 1416; Add 1525 1525 1223; Sub 1598 1598 1525; Mul 1525 363 1177; Mul 1223 596 1236;
  Add 1525 1525 1223; Mul 1223 387 1104; Mul 1416 591 1185; Add 1223 1223 1416; Add 1525 1525 1223;
  Mul 1223 405 1687; Mul 1416 374 1347; Add 1223 1223 1416; Add 1525 1525 1223; Mul 1223 621 1202;
  Mul 1416 405 1279; Mul 1278 381 1347; Add 1416 1416 1278; Mul 1278 387 1202; Mul 1315 384 1185;
  Add 1278 1278 1315; Sub 1416 1416 1278; Sub 1416 1109 1416; Mul 1416 378 1416; Mul 1278 384 1416;
  Add 1223 1223 1278; Mul 1278 475 1504; Mul 1315 391 1164; Add 1278 1278 1315; Sub 1223 1223 1278;
  Add 1525 1525 1223; Mul 1525 213 1525; Add 1598 1598 1525; Mul 1223 610 1502; Mul 1278 420 1605;
  Add 1315 1223 1278; Mul 1554 612 1330; Add 1237 1237 1165; Mul 1237 430 1237; Sub 1237 1237 1102;
  Mul 1165 442 1237; Add 1469 1554 1165; Sub 1315 1315 1469; Mul 1469 460 1233; Mul 1305 438 1137;
  Add 1017 1469 1305; Mul 1308 445 1367; Mul 1477 455 1289; Add 1181 1308 1477; Add 1017 1017 1181;
  Mul 1181 614 1585; Mul 1654 439 1386; Add 1194 1181 1654; Mul 1652 442 1652; Mul 1199 605 1330;
  Add 1669 1652 1199; Sub 1194 1194 1669; Add 1017 1017 1194; Sub 1315 1315 1017; Mul 1017 417 1394;
  Mul 1194 609 1509; Add 1017 1017 1194; Mul 1194 441 1147; Mul 1669 604 1258; Add 1194 1194 1669;
  Add 1017 1017 1194; Mul 1194 459 1400; Mul 1669 426 1557; Add 1194 1194 1669; Add 1017 1017 1194;
  Mul 1194 623 1233; Mul 1669 459 1359; Mul 1644 434 1557; Add 1669 1669 1644; Mul 1644 441 1233;
  Mul 1341 438 1258; Add 1644 1644 1341; Sub 1669 1669 1644; Sub 1669 1590 1669; Mul 1669 430 1669;
  Mul 1644 438 1669; Add 1194 1194 1644; Mul 1644 477 1289; Mul 1341 445 1668; Add 1644 1644 1341;
  Sub 1194 1194 1644; Add 1017 1017 1194; Mul 1017 213 1017; Add 1315 1315 1017; Add 1598 1598 1315;
  Add 1243 1243 1598; Add 1152 1152 1243; Add 1391 1391 1152; Mul 1391 215 1391; Mul 1194 613 1413;
  Add 1391 1391 1194; Sub 1129 1129 1391; Mul 1391 212 1281; Mul 1194 242 1391; Mul 1644 624 1144;
  Sub 1194 1194 1644; Mul 1644 212 1442; Mul 1341 231 1644; Mul 1316 626 1481; Sub 1341 1341 1316;
  Add 1341 1476 1341; Sub 1194 1194 1341; Mul 1341 213 1166; Add 1316 1194 1341; Mul 1180 269 1582;
  Mul 1295 275 1180; Mul 1545 629 1410; Add 1135 1295 1545; Mul 1417 631 1162; Mul 1556 269 1399;
  Mul 1239 282 1556; Add 1436 1417 1239; Add 1436 1696 1436; Sub 1135 1135 1436; Mul 1436 213 1682;
  Add 1392 1135 1436; Mul 1628 323 1361; Mul 1319 329 1628; Mul 1537 634 1375; Add 1364 1319 1537;
  Mul 1229 636 1689; Mul 1519 323 1491; Mul 1127 336 1519; Add 1087 1229 1127; Add 1087 1653 1087;
  Sub 1364 1364 1087; Mul 1087 213 1415; Add 1529 1364 1087; Mul 1325 378 1398; Mul 1343 384 1325;
  Mul 1655 639 1202; Add 1248 1343 1655; Mul 1230 641 1504; Mul 1420 378 1120; Mul 1383 391 1420;
  Add 1298 1230 1383; Add 1298 1498 1298; Sub 1248 1248 1298; Mul 1298 213 1272; Add 1348 1248 1298;
  Mul 1201 430 1502; Mul 1238 438 1201; Mul 1096 644 1233; Add 1646 1238 1096].
Definition casadi_f0_265 : list instruction := [
  Mul 1627 646 1289; Mul 1112 430 1386; Mul 1141 445 1112; Add 1586 1627 1141; Add 1586 1452 1586;
  Sub 1646 1646 1586; Mul 1586 213 1206; Add 1388 1646 1586; Add 1348 1348 1388; Add 1529 1529 1348;
  Add 1392 1392 1529; Add 1316 1316 1392; Mul 1316 540 1316; Mul 1183 628 1589; Sub 1316 1316 1183;
  Mul 1183 212 1688; Mul 1335 242 1183; Mul 1323 650 1144; Sub 1335 1335 1323; Mul 1323 626 1324;
  Mul 1583 225 1644; Add 1323 1323 1583; Add 1323 1658 1323; Sub 1335 1335 1323; Mul 1323 213 1494;
  Add 1583 1335 1323; Mul 1624 631 1577; Mul 1256 271 1556; Add 1666 1624 1256; Sub 1666 1468 1666;
  Mul 1276 269 1699; Mul 1382 275 1276; Mul 1132 655 1410; Add 1203 1382 1132; Add 1666 1666 1203;
  Mul 1203 213 1536; Sub 1650 1666 1203; Mul 1187 636 1251; Mul 1670 325 1519; Add 1176 1187 1670;
  Sub 1176 1542 1176; Mul 1143 323 1122; Mul 1175 329 1143; Mul 1412 659 1375; Add 1173 1175 1412;
  Add 1176 1176 1173; Mul 1173 213 1571; Sub 1460 1176 1173; Mul 1274 641 1279; Mul 1532 381 1420;
  Add 1700 1274 1532; Sub 1700 1242 1700; Mul 1062 378 1547; Mul 1257 384 1062; Mul 1618 663 1202;
  Add 1422 1257 1618; Add 1700 1700 1422; Mul 1422 213 1416; Sub 1402 1700 1422; Mul 1551 646 1359;
  Mul 1168 434 1112; Add 1523 1551 1168; Sub 1523 1137 1523; Mul 1454 430 1330; Mul 1221 438 1454;
  Mul 1425 667 1233; Add 1154 1221 1425; Add 1523 1523 1154; Mul 1154 213 1669; Sub 1309 1523 1154;
  Add 1402 1402 1309; Add 1460 1460 1402; Add 1650 1650 1460; Add 1583 1583 1650; Mul 1583 544 1583;
  Mul 1661 653 1060; Add 1583 1583 1661; Add 1316 1316 1583; Sub 1129 1129 1316; Add 1609 1609 1129;
  Mul 1609 1 1609; Mul 1129 509 1451; Add 1609 1609 1129; Add 1408 1408 1609; Mul 1609 602 1634;
  Mul 1129 216 1314; Mul 1316 296 1082; Sub 1129 1129 1316; Mul 1316 517 1129; Add 1609 1609 1316;
  Mul 1316 670 1296; Mul 1583 215 1314; Mul 1661 296 1413; Add 1583 1583 1661; Mul 1661 532 1583;
  Add 1316 1316 1661; Add 1609 1609 1316; Mul 1543 671 1543; Mul 1316 216 1179; Mul 1661 255 1082;
  Sub 1316 1316 1661; Mul 1661 215 1303; Mul 1649 278 1413; Add 1661 1661 1649; Add 1316 1316 1661;
  Mul 1661 492 1316; Add 1543 1543 1661; Sub 1609 1609 1543; Mul 1543 675 1310; Mul 1661 215 1282;
  Mul 1649 290 1413; Add 1661 1661 1649; Mul 1649 674 1314; Mul 1370 216 1225; Mul 1108 274 1082;
  Add 1370 1370 1108; Mul 1108 296 1370; Sub 1649 1649 1108; Mul 1108 676 1179; Mul 1287 215 1287;
  Mul 1464 270 1413; Add 1287 1287 1464; Mul 1149 216 1149; Mul 1464 281 1082; Add 1149 1149 1464;
  Sub 1287 1287 1149; Mul 1149 255 1287; Add 1108 1108 1149; Add 1649 1649 1108; Add 1661 1661 1649;
  Mul 1649 602 1496; Mul 1108 523 1129; Add 1649 1649 1108; Mul 1108 671 1310; Mul 1149 502 1316;
  Add 1108 1108 1149; Add 1649 1649 1108; Sub 1649 1661 1649; Mul 1649 672 1649; Mul 1108 502 1649;
  Add 1543 1543 1108; Mul 1108 679 1084; Mul 1282 216 1282; Mul 1149 290 1082; Sub 1282 1282 1149;
  Mul 1149 676 1303; Mul 1464 278 1287; Add 1149 1149 1464; Mul 1464 680 1314].
Definition casadi_f0_266 : list instruction := [
  Mul 1150 274 1413; Mul 1225 215 1225; Sub 1150 1150 1225; Mul 1225 296 1150; Add 1464 1464 1225;
  Add 1149 1149 1464; Sub 1282 1282 1149; Mul 1149 671 1084; Mul 1464 505 1316; Add 1149 1149 1464;
  Mul 1464 670 1496; Mul 1225 523 1583; Add 1464 1464 1225; Add 1149 1149 1464; Add 1149 1282 1149;
  Mul 1149 672 1149; Mul 1464 505 1149; Add 1108 1108 1464; Sub 1543 1543 1108; Add 1609 1609 1543;
  Mul 1392 674 1392; Mul 1543 633 1370; Sub 1392 1392 1543; Mul 1650 680 1650; Mul 1543 657 1150;
  Add 1650 1650 1543; Mul 1556 275 1556; Mul 1410 631 1410; Add 1543 1556 1410; Mul 1108 629 1162;
  Mul 1464 282 1180; Add 1225 1108 1464; Mul 1395 655 1577; Mul 1488 271 1276; Add 1597 1395 1488;
  Add 1410 1410 1556; Add 1556 1597 1410; Add 1225 1225 1556; Sub 1622 1543 1225; Add 1464 1464 1108;
  Add 1488 1488 1395; Add 1543 1488 1543; Add 1464 1464 1543; Sub 1410 1410 1464; Sub 1622 1622 1410;
  Mul 1519 329 1519; Mul 1375 636 1375; Add 1410 1519 1375; Mul 1395 634 1689; Mul 1108 336 1628;
  Add 1317 1395 1108; Mul 1189 659 1251; Mul 1353 325 1143; Add 1190 1189 1353; Add 1375 1375 1519;
  Add 1519 1190 1375; Add 1317 1317 1519; Sub 1555 1410 1317; Add 1108 1108 1395; Add 1353 1353 1189;
  Add 1410 1353 1410; Add 1108 1108 1410; Sub 1375 1375 1108; Sub 1555 1555 1375; Mul 1420 384 1420;
  Mul 1202 641 1202; Add 1375 1420 1202; Mul 1189 639 1504; Mul 1395 391 1325; Add 1441 1189 1395;
  Mul 1411 663 1279; Mul 1593 381 1062; Add 1448 1411 1593; Add 1202 1202 1420; Add 1420 1448 1202;
  Add 1441 1441 1420; Sub 1594 1375 1441; Add 1395 1395 1189; Add 1593 1593 1411; Add 1375 1593 1375;
  Add 1395 1395 1375; Sub 1202 1202 1395; Sub 1594 1594 1202; Mul 1112 438 1112; Mul 1202 646 1233;
  Add 1411 1112 1202; Mul 1189 644 1289; Mul 1116 445 1201; Add 1497 1189 1116; Mul 1228 667 1359;
  Mul 1266 434 1454; Add 1602 1228 1266; Add 1202 1202 1112; Add 1112 1602 1202; Add 1497 1497 1112;
  Sub 1369 1411 1497; Add 1116 1116 1189; Add 1266 1266 1228; Add 1411 1266 1411; Add 1116 1116 1411;
  Sub 1202 1202 1116; Sub 1369 1369 1202; Add 1594 1594 1369; Add 1555 1555 1594; Add 1622 1622 1555;
  Mul 1622 676 1622; Mul 1202 687 1287; Add 1228 1622 1202; Sub 1650 1650 1228; Add 1392 1392 1650;
  Mul 1152 215 1152; Mul 1650 552 1413; Add 1152 1152 1650; Mul 1651 216 1651; Mul 1650 568 1082;
  Sub 1651 1651 1650; Sub 1152 1152 1651; Add 1392 1392 1152; Add 1609 1609 1392; Mul 1609 2 1609;
  Mul 1392 649 1167; Add 1609 1609 1392; Add 1408 1408 1609; Mul 1172 677 1172; Mul 1609 216 1019;
  Mul 1392 309 1082; Sub 1609 1609 1392; Mul 1392 215 1354; Mul 1152 332 1413; Add 1392 1392 1152;
  Add 1609 1609 1392; Mul 1392 484 1609; Add 1172 1172 1392; Mul 1392 706 1026; Mul 1152 216 1219;
  Mul 1651 349 1082; Sub 1152 1152 1651; Mul 1651 513 1152; Add 1392 1392 1651; Mul 1651 712 1495;
  Mul 1650 215 1219; Mul 1228 349 1413; Add 1650 1650 1228; Mul 1228 530 1650; Add 1651 1651 1228;
  Add 1392 1392 1651; Sub 1172 1172 1392; Mul 1392 711 1694; Mul 1651 706 1616].
Definition casadi_f0_267 : list instruction := [
  Mul 1228 519 1152; Add 1651 1651 1228; Mul 1228 677 1694; Mul 1189 494 1609; Add 1228 1228 1189;
  Add 1651 1651 1228; Mul 1228 215 1036; Mul 1189 344 1413; Add 1228 1228 1189; Mul 1189 714 1219;
  Mul 1538 216 1518; Mul 1032 328 1082; Sub 1538 1538 1032; Mul 1032 349 1538; Add 1189 1189 1032;
  Mul 1032 716 1019; Mul 1640 216 1640; Mul 1263 335 1082; Sub 1640 1640 1263; Mul 1320 215 1320;
  Mul 1263 324 1413; Add 1320 1320 1263; Add 1640 1640 1320; Mul 1320 309 1640; Add 1032 1032 1320;
  Add 1189 1189 1032; Add 1228 1228 1189; Sub 1651 1651 1228; Mul 1651 156 1651; Mul 1189 494 1651;
  Add 1392 1392 1189; Mul 1189 719 1093; Mul 1032 716 1354; Mul 1320 332 1640; Add 1032 1032 1320;
  Mul 1320 718 1219; Mul 1518 215 1518; Mul 1263 328 1413; Add 1518 1518 1263; Mul 1263 349 1518;
  Add 1320 1320 1263; Add 1032 1032 1320; Mul 1036 216 1036; Mul 1320 344 1082; Sub 1036 1036 1320;
  Sub 1032 1032 1036; Mul 1036 677 1093; Mul 1320 497 1609; Add 1036 1036 1320; Mul 1320 712 1616;
  Mul 1263 519 1650; Add 1320 1320 1263; Add 1036 1036 1320; Sub 1036 1032 1036; Mul 1036 156 1036;
  Mul 1320 497 1036; Add 1189 1189 1320; Sub 1392 1392 1189; Add 1172 1172 1392; Mul 1555 716 1555;
  Mul 1392 694 1640; Add 1189 1555 1392; Mul 1460 718 1460; Mul 1320 661 1518; Add 1460 1460 1320;
  Sub 1189 1189 1460; Mul 1529 714 1529; Mul 1460 638 1538; Add 1529 1529 1460; Sub 1189 1189 1529;
  Mul 1340 216 1340; Mul 1529 582 1082; Sub 1340 1340 1529; Mul 1243 215 1243; Mul 1529 618 1413;
  Add 1243 1243 1529; Sub 1340 1340 1243; Add 1189 1189 1340; Add 1172 1172 1189; Mul 1172 3 1172;
  Mul 1189 681 1567; Add 1172 1172 1189; Add 1408 1408 1172; Mul 1172 715 1332; Mul 1189 327 1347;
  Mul 1340 405 1662; Add 1189 1189 1340; Mul 1340 318 1185; Mul 1243 387 1111; Add 1340 1340 1243;
  Sub 1189 1189 1340; Mul 1340 510 1189; Add 1172 1172 1340; Mul 1340 721 1235; Mul 1243 318 1236;
  Mul 1529 363 1111; Add 1243 1243 1529; Mul 1529 310 1347; Mul 1460 405 1231; Add 1529 1529 1460;
  Sub 1243 1243 1529; Mul 1529 528 1243; Add 1340 1340 1529; Add 1172 1172 1340; Mul 1340 722 1563;
  Mul 1529 310 1185; Mul 1460 387 1231; Add 1529 1529 1460; Mul 1460 327 1236; Mul 1320 363 1662;
  Add 1460 1460 1320; Sub 1529 1529 1460; Mul 1460 479 1529; Add 1340 1340 1460; Add 1172 1172 1340;
  Mul 1340 726 1435; Mul 1460 318 1109; Mul 1320 404 1111; Add 1460 1460 1320; Mul 1320 310 1701;
  Mul 1263 399 1231; Add 1320 1320 1263; Sub 1460 1460 1320; Mul 1320 725 1347; Mul 1263 327 1255;
  Mul 1338 383 1662; Add 1263 1263 1338; Mul 1338 318 1617; Mul 1450 379 1111; Add 1338 1338 1450;
  Sub 1263 1263 1338; Mul 1338 405 1263; Add 1320 1320 1338; Mul 1338 727 1236; Mul 1617 310 1617;
  Mul 1450 379 1231; Add 1617 1617 1450; Mul 1450 327 1052; Mul 1222 390 1662; Add 1450 1450 1222;
  Sub 1617 1617 1450; Mul 1450 363 1617; Add 1338 1338 1450; Sub 1320 1320 1338; Add 1460 1460 1320;
  Mul 1320 715 1114; Mul 1338 515 1189; Add 1320 1320 1338; Mul 1338 722 1435].
Definition casadi_f0_268 : list instruction := [
  Mul 1450 486 1529; Add 1338 1338 1450; Sub 1320 1320 1338; Sub 1320 1460 1320; Mul 1320 723 1320;
  Mul 1338 486 1320; Add 1340 1340 1338; Mul 1338 730 1121; Mul 1701 327 1701; Mul 1450 399 1662;
  Add 1701 1701 1450; Mul 1450 318 1600; Mul 1222 408 1111; Add 1450 1450 1222; Sub 1701 1701 1450;
  Mul 1450 727 1185; Mul 1222 387 1617; Add 1450 1450 1222; Mul 1222 731 1347; Mul 1052 318 1052;
  Mul 1393 390 1111; Add 1052 1052 1393; Mul 1255 310 1255; Mul 1393 383 1231; Add 1255 1255 1393;
  Sub 1052 1052 1255; Mul 1255 405 1052; Add 1222 1222 1255; Sub 1450 1450 1222; Add 1701 1701 1450;
  Mul 1450 722 1121; Mul 1222 489 1529; Add 1450 1450 1222; Mul 1222 721 1114; Mul 1255 515 1243;
  Add 1222 1222 1255; Sub 1450 1450 1222; Sub 1450 1701 1450; Mul 1450 723 1450; Mul 1222 489 1450;
  Add 1338 1338 1222; Sub 1340 1340 1338; Add 1172 1172 1340; Mul 1340 725 1348; Mul 1338 643 1263;
  Add 1340 1340 1338; Mul 1338 731 1402; Mul 1222 665 1052; Add 1338 1338 1222; Mul 1222 727 1594;
  Mul 1255 701 1617; Add 1393 1222 1255; Add 1338 1338 1393; Add 1340 1340 1338; Mul 1338 310 1598;
  Mul 1393 620 1231; Add 1338 1338 1393; Mul 1393 327 1224; Mul 1091 595 1662; Add 1393 1393 1091;
  Mul 1499 318 1499; Mul 1091 395 1111; Add 1475 1499 1091; Add 1393 1393 1475; Add 1338 1338 1393;
  Sub 1340 1340 1338; Add 1172 1172 1340; Mul 1340 4 1172; Mul 1338 720 1157; Add 1340 1340 1338;
  Add 1408 1408 1340; Mul 1340 728 1526; Mul 1338 372 1557; Mul 1393 459 1678; Add 1338 1338 1393;
  Mul 1393 369 1258; Mul 1475 441 1674; Add 1393 1393 1475; Sub 1338 1338 1393; Mul 1393 443 1338;
  Add 1340 1340 1393; Mul 1393 733 1400; Mul 1475 369 1509; Mul 1365 417 1674; Add 1475 1475 1365;
  Mul 1365 358 1557; Mul 1456 459 1524; Add 1365 1365 1456; Sub 1475 1475 1365; Mul 1365 426 1475;
  Add 1393 1393 1365; Add 1340 1340 1393; Mul 1393 734 1549; Mul 1365 358 1258; Mul 1456 441 1524;
  Add 1365 1365 1456; Mul 1456 372 1509; Mul 1487 417 1678; Add 1456 1456 1487; Sub 1365 1365 1456;
  Mul 1456 478 1365; Add 1393 1393 1456; Add 1340 1340 1393; Mul 1393 735 1289; Mul 1456 369 1590;
  Mul 1487 458 1674; Add 1456 1456 1487; Mul 1487 358 1620; Mul 1592 451 1524; Add 1487 1487 1592;
  Sub 1456 1456 1487; Mul 1487 736 1557; Mul 1592 372 1562; Mul 1360 437 1678; Add 1592 1592 1360;
  Mul 1360 369 1647; Mul 1635 432 1674; Add 1360 1360 1635; Sub 1592 1592 1360; Mul 1360 459 1592;
  Add 1487 1487 1360; Mul 1360 738 1509; Mul 1647 358 1647; Mul 1635 432 1524; Add 1647 1647 1635;
  Mul 1635 372 1200; Mul 1693 444 1678; Add 1635 1635 1693; Sub 1647 1647 1635; Mul 1635 417 1647;
  Add 1360 1360 1635; Sub 1487 1487 1360; Add 1456 1456 1487; Mul 1487 728 1233; Mul 1360 438 1338;
  Add 1487 1487 1360; Mul 1360 734 1289; Mul 1635 445 1365; Add 1360 1360 1635; Sub 1487 1487 1360;
  Sub 1456 1456 1487; Mul 1456 430 1456; Mul 1487 445 1456; Add 1393 1393 1487; Mul 1487 739 1359;
  Mul 1620 372 1620; Mul 1360 451 1678; Add 1620 1620 1360; Mul 1360 369 1490].
Definition casadi_f0_269 : list instruction := [
  Mul 1635 462 1674; Add 1360 1360 1635; Sub 1620 1620 1360; Mul 1360 738 1258; Mul 1635 441 1647;
  Add 1360 1360 1635; Mul 1635 741 1557; Mul 1200 369 1200; Mul 1693 444 1674; Add 1200 1200 1693;
  Mul 1562 358 1562; Mul 1693 437 1524; Add 1562 1562 1693; Sub 1200 1200 1562; Mul 1562 459 1200;
  Add 1635 1635 1562; Sub 1360 1360 1635; Add 1620 1620 1360; Mul 1360 734 1359; Mul 1635 434 1365;
  Add 1360 1360 1635; Mul 1635 733 1233; Mul 1562 438 1475; Add 1635 1635 1562; Sub 1360 1360 1635;
  Sub 1620 1620 1360; Mul 1620 430 1620; Mul 1360 434 1620; Add 1487 1487 1360; Sub 1393 1393 1487;
  Add 1340 1340 1393; Mul 1393 736 1388; Mul 1487 648 1592; Add 1393 1393 1487; Mul 1487 741 1309;
  Mul 1360 669 1200; Add 1487 1487 1360; Mul 1360 738 1369; Mul 1635 708 1647; Add 1562 1360 1635;
  Add 1487 1487 1562; Add 1393 1393 1487; Mul 1487 358 1315; Mul 1562 622 1524; Add 1487 1487 1562;
  Mul 1562 372 1169; Mul 1693 608 1678; Add 1562 1562 1693; Mul 1681 369 1681; Mul 1693 449 1674;
  Add 1234 1681 1693; Add 1562 1562 1234; Add 1487 1487 1562; Sub 1393 1393 1487; Add 1340 1340 1393;
  Mul 1393 5 1340; Mul 1487 732 1077; Add 1393 1393 1487; Add 1408 1408 1393; Mul 1393 286 1505;
  Mul 1487 212 1393; Mul 1487 107 1487; Mul 1562 745 1482; Mul 1234 737 1482; Mul 1163 9 1393;
  Add 1234 1234 1163; Mul 1163 743 1639; Mul 1409 286 1240; Mul 1377 8 1409; Add 1163 1163 1377;
  Sub 1234 1234 1163; Mul 1163 269 1234; Mul 1377 81 1163; Mul 1610 746 1453; Mul 1462 743 1482;
  Mul 1042 9 1409; Sub 1462 1462 1042; Mul 1393 8 1393; Mul 1042 737 1639; Sub 1393 1393 1042;
  Sub 1462 1462 1393; Mul 1393 53 1462; Add 1610 1610 1393; Mul 1393 66 1234; Mul 1042 742 1232;
  Sub 1393 1393 1042; Add 1610 1610 1393; Mul 1393 323 1610; Mul 1042 47 1393; Mul 1086 378 1610;
  Mul 1684 24 1086; Mul 1568 752 1426; Mul 1074 66 1462; Mul 1207 746 1232; Sub 1074 1074 1207;
  Mul 1207 742 1453; Mul 1234 53 1234; Add 1207 1207 1234; Sub 1074 1074 1207; Mul 1207 35 1074;
  Add 1568 1568 1207; Mul 1207 378 1568; Mul 1234 31 1207; Sub 1684 1684 1234; Mul 1234 753 1680;
  Mul 1429 15 1568; Add 1234 1234 1429; Mul 1429 16 1610; Mul 1099 747 1076; Sub 1429 1429 1099;
  Add 1234 1234 1429; Mul 1234 430 1234; Mul 1429 26 1234; Mul 1568 16 1568; Mul 1099 753 1076;
  Sub 1568 1568 1099; Mul 1099 747 1680; Mul 1610 15 1610; Add 1099 1099 1610; Sub 1568 1568 1099;
  Mul 1568 430 1568; Mul 1099 28 1568; Sub 1429 1429 1099; Mul 1099 16 1234; Mul 1610 755 1076;
  Sub 1099 1099 1610; Mul 1610 757 1680; Mul 1055 15 1568; Add 1610 1610 1055; Sub 1099 1099 1610;
  Mul 1610 25 1099; Mul 1055 16 1568; Mul 1407 757 1076; Sub 1055 1055 1407; Mul 1407 755 1680;
  Mul 1621 15 1234; Add 1407 1407 1621; Add 1055 1055 1407; Mul 1407 32 1055; Sub 1610 1610 1407;
  Add 1610 1429 1610; Add 1684 1684 1610; Mul 1610 19 1684; Mul 1407 751 1048; Sub 1610 1610 1407;
  Mul 1407 763 1426; Mul 1621 19 1074; Mul 1692 752 1048; Sub 1621 1621 1692].
Definition casadi_f0_270 : list instruction := [
  Mul 1692 378 1621; Mul 1079 31 1692; Mul 1021 380 1086; Sub 1079 1079 1021; Mul 1621 430 1621;
  Mul 1021 28 1621; Mul 1234 433 1234; Sub 1021 1021 1234; Mul 1234 16 1021; Mul 1047 764 1076;
  Sub 1234 1234 1047; Mul 1047 766 1680; Mul 1568 433 1568; Mul 1613 26 1621; Sub 1568 1568 1613;
  Mul 1613 15 1568; Add 1047 1047 1613; Add 1234 1234 1047; Mul 1047 32 1621; Mul 1613 198 1099;
  Sub 1047 1047 1613; Add 1234 1234 1047; Add 1079 1079 1234; Mul 1234 35 1079; Add 1407 1407 1234;
  Add 1610 1610 1407; Add 1086 1086 1099; Mul 1099 48 1086; Add 1407 1207 1055; Mul 1234 19 1407;
  Mul 1047 765 1048; Sub 1234 1234 1047; Mul 1047 768 1426; Add 1613 1692 1621; Mul 1702 35 1613;
  Add 1047 1047 1702; Sub 1234 1234 1047; Mul 1047 55 1234; Sub 1099 1099 1047; Add 1610 1610 1099;
  Add 1042 1042 1610; Mul 1610 66 1042; Mul 1099 749 1232; Sub 1610 1610 1099; Mul 1099 762 1453;
  Mul 1207 380 1207; Mul 1692 24 1692; Sub 1207 1207 1692; Mul 1568 16 1568; Mul 1076 766 1076;
  Sub 1568 1568 1076; Mul 1680 764 1680; Mul 1021 15 1021; Add 1680 1680 1021; Sub 1568 1568 1680;
  Mul 1055 198 1055; Mul 1621 25 1621; Sub 1055 1055 1621; Add 1568 1568 1055; Add 1207 1207 1568;
  Mul 1568 62 1234; Mul 1613 19 1613; Mul 1055 768 1048; Sub 1613 1613 1055; Mul 1055 765 1426;
  Mul 1407 35 1407; Add 1055 1055 1407; Add 1613 1613 1055; Mul 1055 48 1613; Sub 1568 1568 1055;
  Add 1568 1207 1568; Mul 1074 323 1074; Mul 1055 47 1074; Sub 1568 1568 1055; Mul 1055 53 1568;
  Add 1099 1099 1055; Add 1610 1610 1099; Mul 1099 86 1234; Sub 1610 1610 1099; Add 1377 1377 1610;
  Mul 1610 9 1377; Add 1562 1562 1610; Mul 1568 66 1568; Mul 1610 762 1232; Sub 1568 1568 1610;
  Mul 1610 749 1453; Mul 1042 53 1042; Add 1610 1610 1042; Sub 1568 1568 1610; Mul 1610 91 1234;
  Add 1568 1568 1610; Mul 1462 269 1462; Mul 1610 81 1462; Sub 1568 1568 1610; Mul 1610 8 1568;
  Mul 1042 758 1639; Sub 1610 1610 1042; Add 1562 1562 1610; Mul 1234 102 1234; Add 1610 1074 1613;
  Mul 1042 66 1610; Mul 1099 770 1232; Sub 1042 1042 1099; Mul 1099 772 1453; Add 1055 1393 1086;
  Mul 1407 53 1055; Add 1099 1099 1407; Add 1042 1042 1099; Add 1099 1462 1042; Mul 1407 8 1099;
  Mul 1621 773 1639; Sub 1407 1407 1621; Mul 1621 776 1482; Mul 1055 66 1055; Mul 1232 772 1232;
  Sub 1055 1055 1232; Mul 1453 770 1453; Mul 1610 53 1610; Add 1453 1453 1610; Sub 1055 1055 1453;
  Add 1453 1163 1055; Mul 1610 9 1453; Add 1621 1621 1610; Sub 1407 1407 1621; Mul 1407 108 1407;
  Sub 1234 1234 1407; Add 1562 1562 1234; Add 1487 1487 1562; Mul 1487 114 1487; Mul 1240 740 1240;
  Sub 1487 1487 1240; Mul 1505 774 1505; Mul 1377 8 1377; Mul 1240 745 1639; Sub 1377 1377 1240;
  Mul 1240 758 1482; Mul 1568 9 1568; Add 1240 1240 1568; Sub 1377 1377 1240; Mul 1482 773 1482;
  Mul 1099 9 1099; Add 1482 1482 1099; Mul 1453 8 1453; Mul 1639 776 1639; Sub 1453 1453 1639;
  Add 1482 1482 1453; Mul 1453 108 1482; Add 1377 1377 1453; Mul 1409 212 1409].
Definition casadi_f0_271 : list instruction := [
  Mul 1453 107 1409; Sub 1377 1377 1453; Mul 1377 113 1377; Add 1505 1505 1377; Sub 1487 1487 1505;
  Add 1408 1408 1487; Mul 1487 210 1408; Sub 1148 1148 1487; Div 1487 1198 92; Mul 1505 1069 1211;
  Sub 1487 1487 1505; Mul 1505 779 1487; Add 1418 1418 1030; Add 1607 1607 1322; Sub 1418 1418 1607;
  Add 1625 1625 1572; Add 1695 1695 1246; Sub 1625 1625 1695; Add 1507 1507 1625; Sub 1418 1418 1507;
  Add 1418 1418 1514; Add 1539 1539 1656; Add 1285 1285 1423; Sub 1539 1539 1285; Add 1690 1690 1461;
  Add 1434 1434 1679; Add 1690 1690 1434; Add 1576 1576 1387; Add 1603 1603 1182; Sub 1576 1576 1603;
  Add 1690 1690 1576; Sub 1539 1539 1690; Add 1539 1539 1484; Add 1591 1591 1301; Add 1210 1210 1275;
  Sub 1591 1591 1210; Add 1188 1188 1389; Add 1445 1445 1277; Add 1188 1188 1445; Add 1406 1406 1245;
  Add 1131 1131 1171; Sub 1406 1406 1131; Add 1188 1188 1406; Sub 1591 1591 1188; Add 1591 1591 1541;
  Add 1444 1444 1455; Add 1339 1339 1271; Sub 1444 1444 1339; Add 1438 1438 1311; Add 1671 1671 1081;
  Add 1438 1438 1671; Add 1533 1533 1659; Add 1573 1573 1288; Sub 1533 1533 1573; Add 1438 1438 1533;
  Sub 1444 1444 1438; Add 1444 1444 1362; Add 1018 1018 1125; Add 1128 1128 1092; Sub 1018 1018 1128;
  Add 1156 1156 1433; Add 1643 1643 1535; Add 1156 1156 1643; Add 1151 1151 1384; Add 1284 1284 1318;
  Sub 1151 1151 1284; Add 1156 1156 1151; Sub 1018 1018 1156; Add 1018 1018 1261; Add 1444 1444 1018;
  Add 1591 1591 1444; Add 1539 1539 1591; Add 1418 1418 1539; Mul 1418 216 1418; Mul 1261 780 1082;
  Sub 1418 1418 1261; Mul 1261 781 1413; Add 1034 1034 1463; Add 1419 1419 1051; Sub 1034 1034 1419;
  Sub 1115 1115 1034; Add 1352 1352 1697; Add 1660 1660 1372; Sub 1352 1352 1660; Add 1115 1115 1352;
  Sub 1115 1115 1489; Add 1371 1371 1506; Add 1440 1440 1686; Sub 1371 1371 1440; Add 1512 1512 1503;
  Add 1133 1133 1241; Add 1512 1512 1133; Add 1631 1631 1097; Add 1641 1641 1346; Sub 1631 1631 1641;
  Add 1512 1512 1631; Sub 1371 1371 1512; Sub 1371 1371 1548; Add 1677 1677 1479; Add 1431 1431 1142;
  Sub 1677 1677 1431; Add 1588 1588 1292; Add 1337 1337 1380; Add 1588 1588 1337; Add 1675 1675 1550;
  Add 1515 1515 1350; Sub 1675 1675 1515; Add 1588 1588 1675; Sub 1677 1677 1588; Sub 1677 1677 1110;
  Add 1134 1134 1195; Add 1356 1356 1297; Sub 1134 1134 1356; Add 1633 1633 1473; Add 1327 1327 1259;
  Add 1633 1633 1327; Add 1170 1170 1580; Add 1604 1604 1358; Sub 1170 1170 1604; Add 1633 1633 1170;
  Sub 1134 1134 1633; Sub 1134 1134 1525; Add 1199 1199 1652; Add 1654 1654 1181; Sub 1199 1199 1654;
  Add 1477 1477 1308; Add 1305 1305 1469; Add 1477 1477 1305; Add 1165 1165 1554; Add 1278 1278 1223;
  Sub 1165 1165 1278; Add 1477 1477 1165; Sub 1199 1199 1477; Sub 1199 1199 1017; Add 1134 1134 1199;
  Add 1677 1677 1134; Add 1371 1371 1677; Add 1115 1115 1371; Mul 1115 215 1115; Add 1261 1261 1115;
  Sub 1418 1418 1261; Sub 1194 1194 1341; Sub 1135 1135 1436; Sub 1364 1364 1087; Sub 1248 1248 1298;
  Sub 1646 1646 1586; Add 1248 1248 1646; Add 1364 1364 1248; Add 1135 1135 1364].
Definition casadi_f0_272 : list instruction := [
  Add 1194 1194 1135; Mul 1194 540 1194; Mul 1341 625 1589; Sub 1194 1194 1341; Mul 1341 651 1060;
  Sub 1335 1335 1323; Add 1666 1666 1203; Add 1176 1176 1173; Add 1700 1700 1422; Add 1523 1523 1154;
  Add 1700 1700 1523; Add 1176 1176 1700; Add 1666 1666 1176; Add 1335 1335 1666; Mul 1335 544 1335;
  Add 1341 1341 1335; Add 1194 1194 1341; Sub 1418 1418 1194; Mul 1418 0 1418; Mul 1194 23 1459;
  Add 1418 1418 1194; Mul 1333 508 1333; Mul 1194 534 1119; Add 1333 1333 1194; Add 1177 1177 1394;
  Mul 1606 482 1606; Mul 1283 511 1283; Add 1606 1606 1283; Sub 1177 1177 1606; Add 1401 1401 1177;
  Mul 1430 490 1430; Mul 1139 514 1139; Add 1430 1430 1139; Sub 1401 1401 1430; Add 1511 1511 1401;
  Mul 1373 498 1373; Mul 1584 518 1584; Add 1373 1373 1584; Sub 1511 1511 1373; Add 1558 1558 1511;
  Mul 1376 522 1376; Mul 1227 506 1227; Sub 1376 1376 1227; Sub 1558 1558 1376; Mul 1376 526 1558;
  Mul 1227 784 1103; Add 1376 1376 1227; Add 1104 1104 1147; Mul 1574 1304 1574; Add 1090 1090 1574;
  Mul 1090 20 1090; Add 1104 1104 1090; Add 1071 1071 1104; Mul 1698 1153 1698; Add 1106 1106 1698;
  Mul 1106 37 1106; Add 1071 1071 1106; Add 1579 1579 1071; Mul 1483 1212 1483; Add 1520 1520 1483;
  Mul 1520 80 1520; Add 1579 1579 1520; Add 1424 1424 1579; Mul 1465 1293 1465; Add 1421 1421 1465;
  Mul 1421 100 1421; Sub 1424 1424 1421; Mul 1424 536 1424; Mul 1421 496 1130; Add 1424 1424 1421;
  Add 1376 1376 1424; Sub 1333 1333 1376; Mul 1376 546 1363; Mul 1424 538 1016; Add 1376 1376 1424;
  Mul 1424 791 1191; Mul 1564 215 1564; Mul 1421 222 1413; Add 1564 1564 1421; Mul 1213 216 1213;
  Mul 1421 229 1082; Sub 1213 1213 1421; Sub 1564 1564 1213; Mul 1213 540 1088; Mul 1421 227 1589;
  Sub 1213 1213 1421; Mul 1421 544 1587; Mul 1520 219 1060; Add 1421 1421 1520; Sub 1213 1213 1421;
  Add 1564 1564 1213; Mul 1213 526 1100; Mul 1421 543 1103; Add 1213 1213 1421; Mul 1191 536 1191;
  Mul 1421 537 1130; Add 1191 1191 1421; Sub 1213 1213 1191; Sub 1213 1564 1213; Mul 1213 141 1213;
  Mul 1191 537 1213; Add 1424 1424 1191; Sub 1376 1376 1424; Add 1333 1333 1376; Mul 1376 556 1442;
  Mul 1466 560 1466; Add 1424 1376 1466; Sub 1636 1424 1636; Sub 1672 1038 1672; Sub 1403 1101 1403;
  Add 1672 1672 1403; Add 1466 1466 1376; Sub 1608 1608 1466; Add 1672 1672 1608; Sub 1636 1636 1672;
  Mul 1672 570 1399; Mul 1329 574 1329; Add 1608 1672 1329; Sub 1581 1608 1581; Sub 1561 1561 1117;
  Sub 1663 1663 1565; Add 1561 1561 1663; Add 1329 1329 1672; Sub 1599 1599 1329; Add 1561 1561 1599;
  Sub 1581 1581 1561; Mul 1561 584 1491; Mul 1025 588 1025; Add 1599 1561 1025; Sub 1291 1599 1291;
  Sub 1601 1601 1522; Sub 1302 1302 1691; Add 1601 1601 1302; Add 1025 1025 1561; Sub 1544 1544 1025;
  Add 1601 1601 1544; Sub 1291 1291 1601; Mul 1601 597 1120; Mul 1673 601 1673; Add 1544 1601 1673;
  Sub 1253 1544 1253; Sub 1595 1595 1492; Sub 1192 1192 1218; Add 1595 1595 1192; Add 1673 1673 1601;
  Sub 1118 1118 1673; Add 1595 1595 1118; Sub 1253 1253 1595; Mul 1595 610 1386].
Definition casadi_f0_273 : list instruction := [
  Mul 1605 614 1605; Add 1118 1595 1605; Sub 1252 1118 1252; Sub 1193 1193 1513; Sub 1326 1326 1517;
  Add 1193 1193 1326; Add 1605 1605 1595; Sub 1493 1493 1605; Add 1193 1193 1493; Sub 1252 1252 1193;
  Add 1253 1253 1252; Add 1291 1291 1253; Add 1581 1581 1291; Add 1636 1636 1581; Mul 1636 216 1636;
  Mul 1193 251 1082; Sub 1636 1636 1193; Mul 1193 230 1324; Mul 1658 225 1658; Add 1493 1193 1658;
  Mul 1476 231 1476; Mul 1595 223 1481; Sub 1476 1476 1595; Sub 1493 1493 1476; Mul 1205 560 1205;
  Mul 1595 553 1442; Add 1326 1205 1595; Mul 1447 244 1447; Mul 1688 248 1688; Add 1517 1447 1688;
  Sub 1326 1326 1517; Sub 1493 1493 1326; Mul 1442 558 1442; Mul 1527 560 1527; Add 1326 1442 1527;
  Mul 1281 243 1281; Mul 1664 249 1664; Add 1517 1281 1664; Sub 1326 1326 1517; Add 1493 1493 1326;
  Mul 1300 219 1300; Mul 1587 239 1587; Add 1300 1300 1587; Mul 1575 227 1575; Mul 1088 246 1088;
  Add 1575 1575 1088; Add 1300 1300 1575; Mul 1528 467 1528; Mul 1244 525 1244; Sub 1528 1528 1244;
  Add 1300 1300 1528; Mul 1166 231 1166; Mul 1528 559 1481; Sub 1166 1166 1528; Mul 1528 616 1324;
  Mul 1494 225 1494; Add 1528 1528 1494; Add 1166 1166 1528; Add 1300 1300 1166; Mul 1300 213 1300;
  Sub 1493 1493 1300; Mul 1166 572 1399; Mul 1396 574 1396; Add 1528 1166 1396; Mul 1582 284 1582;
  Mul 1113 258 1113; Add 1494 1582 1113; Sub 1528 1528 1494; Mul 1494 297 1577; Mul 1244 271 1468;
  Add 1575 1494 1244; Mul 1088 282 1696; Mul 1587 300 1162; Add 1326 1088 1587; Add 1575 1575 1326;
  Mul 1146 574 1146; Mul 1399 567 1399; Add 1326 1146 1399; Mul 1552 279 1552; Mul 1699 276 1699;
  Add 1517 1552 1699; Sub 1326 1326 1517; Add 1575 1575 1326; Sub 1528 1528 1575; Mul 1254 255 1254;
  Mul 1575 280 1179; Add 1254 1254 1575; Mul 1449 278 1449; Mul 1575 266 1303; Add 1449 1449 1575;
  Add 1254 1254 1449; Mul 1209 296 1209; Mul 1314 472 1314; Add 1209 1209 1314; Add 1254 1254 1209;
  Mul 1209 573 1162; Mul 1682 282 1682; Add 1209 1209 1682; Mul 1682 617 1577; Mul 1536 271 1536;
  Add 1682 1682 1536; Sub 1209 1209 1682; Add 1254 1254 1209; Mul 1254 213 1254; Sub 1528 1528 1254;
  Mul 1209 586 1491; Mul 1478 588 1478; Add 1682 1209 1478; Mul 1361 338 1361; Mul 1458 312 1458;
  Add 1536 1361 1458; Sub 1682 1682 1536; Mul 1536 351 1251; Mul 1314 325 1542; Add 1449 1536 1314;
  Mul 1575 336 1653; Mul 1326 354 1689; Add 1517 1575 1326; Add 1449 1449 1517; Mul 1368 588 1368;
  Mul 1491 581 1491; Add 1517 1368 1491; Mul 1313 333 1313; Mul 1122 330 1122; Add 1513 1313 1122;
  Sub 1517 1517 1513; Add 1449 1449 1517; Sub 1682 1682 1449; Mul 1500 309 1500; Mul 1449 334 1019;
  Add 1500 1500 1449; Mul 1022 332 1022; Mul 1449 320 1354; Add 1022 1022 1449; Add 1500 1500 1022;
  Mul 1566 349 1566; Mul 1219 474 1219; Add 1566 1566 1219; Add 1500 1500 1566; Mul 1566 587 1689;
  Mul 1415 336 1415; Add 1566 1566 1415; Mul 1415 619 1251; Mul 1571 325 1571; Add 1415 1415 1571;
  Sub 1566 1566 1415; Add 1500 1500 1566; Mul 1500 213 1500; Sub 1682 1682 1500].
Definition casadi_f0_274 : list instruction := [
  Mul 1566 599 1120; Mul 1378 601 1378; Add 1415 1566 1378; Mul 1398 393 1398; Mul 1642 366 1642;
  Add 1571 1398 1642; Sub 1415 1415 1571; Mul 1571 406 1279; Mul 1219 381 1242; Add 1022 1571 1219;
  Mul 1449 391 1498; Mul 1517 409 1504; Add 1513 1449 1517; Add 1022 1022 1513; Mul 1355 601 1355;
  Mul 1120 594 1120; Add 1513 1355 1120; Mul 1345 388 1345; Mul 1547 385 1547; Add 1601 1345 1547;
  Sub 1513 1513 1601; Add 1022 1022 1513; Sub 1415 1415 1022; Mul 1471 363 1471; Mul 1022 389 1236;
  Add 1471 1471 1022; Mul 1687 387 1687; Mul 1022 374 1185; Add 1687 1687 1022; Add 1471 1471 1687;
  Mul 1570 405 1570; Mul 1347 476 1347; Add 1570 1570 1347; Add 1471 1471 1570; Mul 1570 600 1504;
  Mul 1272 391 1272; Add 1570 1570 1272; Mul 1272 621 1279; Mul 1416 381 1416; Add 1272 1272 1416;
  Sub 1570 1570 1272; Add 1471 1471 1570; Mul 1471 213 1471; Sub 1415 1415 1471; Mul 1570 612 1386;
  Mul 1237 614 1237; Add 1272 1570 1237; Mul 1502 447 1502; Mul 1270 420 1270; Add 1416 1502 1270;
  Sub 1272 1272 1416; Mul 1416 460 1359; Mul 1347 434 1137; Add 1687 1416 1347; Mul 1022 445 1452;
  Mul 1513 463 1289; Add 1601 1022 1513; Add 1687 1687 1601; Mul 1107 614 1107; Mul 1386 607 1386;
  Add 1601 1107 1386; Mul 1585 442 1585; Mul 1330 439 1330; Add 1192 1585 1330; Sub 1601 1601 1192;
  Add 1687 1687 1601; Sub 1272 1272 1687; Mul 1687 417 1526; Mul 1601 443 1509; Add 1687 1687 1601;
  Mul 1601 441 1400; Mul 1192 426 1258; Add 1601 1601 1192; Add 1687 1687 1601; Mul 1601 459 1549;
  Mul 1557 478 1557; Add 1601 1601 1557; Add 1687 1687 1601; Mul 1601 611 1289; Mul 1206 445 1206;
  Add 1601 1601 1206; Mul 1206 623 1359; Mul 1669 434 1669; Add 1206 1206 1669; Sub 1601 1601 1206;
  Add 1687 1687 1601; Mul 1687 213 1687; Sub 1272 1272 1687; Add 1415 1415 1272; Add 1682 1682 1415;
  Add 1528 1528 1682; Add 1493 1493 1528; Mul 1493 215 1493; Mul 1601 470 1413; Add 1493 1493 1601;
  Sub 1636 1636 1493; Mul 1493 225 1391; Mul 1601 624 1324; Add 1206 1493 1601; Mul 1669 231 1183;
  Mul 1557 650 1481; Sub 1669 1669 1557; Sub 1206 1206 1669; Mul 1486 213 1486; Add 1557 1206 1486;
  Mul 1162 655 1162; Mul 1276 282 1276; Add 1192 1162 1276; Sub 1192 1094 1192; Mul 1180 271 1180;
  Mul 1577 629 1577; Add 1218 1180 1577; Add 1192 1192 1218; Mul 1098 213 1098; Sub 1218 1192 1098;
  Mul 1689 659 1689; Mul 1143 336 1143; Add 1492 1689 1143; Sub 1492 1268 1492; Mul 1628 325 1628;
  Mul 1251 634 1251; Add 1561 1628 1251; Add 1492 1492 1561; Mul 1312 213 1312; Sub 1561 1492 1312;
  Mul 1504 663 1504; Mul 1062 391 1062; Add 1302 1504 1062; Sub 1302 1351 1302; Mul 1325 381 1325;
  Mul 1279 639 1279; Add 1691 1325 1279; Add 1302 1302 1691; Mul 1164 213 1164; Sub 1691 1302 1164;
  Mul 1522 667 1289; Mul 1454 445 1454; Add 1672 1522 1454; Sub 1672 1367 1672; Mul 1201 434 1201;
  Mul 1663 644 1359; Add 1565 1201 1663; Add 1672 1672 1565; Mul 1668 213 1668; Sub 1565 1672 1668;
  Add 1691 1691 1565; Add 1561 1561 1691; Add 1218 1218 1561; Add 1557 1557 1218].
Definition casadi_f0_275 : list instruction := [
  Mul 1557 540 1557; Mul 1117 250 1589; Sub 1557 1557 1117; Mul 1183 225 1183; Mul 1324 650 1324;
  Add 1117 1183 1324; Mul 1391 231 1391; Mul 1481 624 1481; Sub 1391 1391 1481; Add 1324 1324 1183;
  Mul 1644 242 1644; Mul 1144 626 1144; Sub 1644 1644 1144; Add 1144 1324 1644; Add 1183 1391 1144;
  Sub 1183 1117 1183; Add 1117 1117 1644; Add 1391 1391 1117; Sub 1324 1324 1391; Sub 1183 1183 1324;
  Sub 1488 1488 1225; Sub 1597 1597 1464; Sub 1488 1488 1597; Sub 1353 1353 1317; Sub 1190 1190 1108;
  Sub 1353 1353 1190; Sub 1593 1593 1441; Sub 1448 1448 1395; Sub 1593 1593 1448; Sub 1266 1266 1497;
  Sub 1602 1602 1116; Sub 1266 1266 1602; Add 1593 1593 1266; Add 1353 1353 1593; Add 1488 1488 1353;
  Add 1183 1183 1488; Mul 1602 544 1183; Mul 1116 806 1060; Add 1602 1602 1116; Add 1557 1557 1602;
  Sub 1636 1636 1557; Add 1333 1333 1636; Mul 1333 216 1333; Mul 1636 652 1082; Sub 1333 1333 1636;
  Mul 1636 804 1413; Mul 1467 508 1467; Mul 1557 521 1119; Add 1467 1467 1557; Add 1250 1250 1574;
  Mul 1250 20 1250; Add 1480 1480 1102; Sub 1250 1250 1480; Sub 1546 1250 1546; Add 1432 1432 1698;
  Mul 1432 37 1432; Add 1546 1546 1432; Sub 1216 1546 1216; Add 1140 1140 1483; Mul 1140 80 1140;
  Add 1216 1216 1140; Add 1427 1427 1216; Sub 1540 1540 1465; Mul 1540 100 1540; Add 1427 1427 1540;
  Mul 1427 526 1427; Mul 1540 499 1103; Add 1427 1427 1540; Mul 1558 536 1558; Mul 1540 784 1130;
  Add 1558 1558 1540; Add 1427 1427 1558; Sub 1467 1467 1427; Mul 1100 791 1100; Mul 1213 543 1213;
  Add 1100 1100 1213; Mul 1363 539 1363; Mul 1213 538 1648; Add 1363 1363 1213; Sub 1100 1100 1363;
  Add 1467 1467 1100; Add 1658 1658 1193; Sub 1658 1658 1476; Add 1664 1664 1281; Add 1527 1527 1442;
  Sub 1664 1664 1527; Sub 1658 1658 1664; Add 1688 1688 1447; Add 1595 1595 1205; Sub 1688 1688 1595;
  Add 1658 1658 1688; Add 1658 1658 1300; Add 1699 1699 1552; Add 1399 1399 1146; Sub 1699 1699 1399;
  Add 1587 1587 1088; Add 1244 1244 1494; Add 1587 1587 1244; Add 1113 1113 1582; Add 1396 1396 1166;
  Sub 1113 1113 1396; Add 1587 1587 1113; Sub 1699 1699 1587; Add 1699 1699 1254; Add 1122 1122 1313;
  Add 1491 1491 1368; Sub 1122 1122 1491; Add 1326 1326 1575; Add 1314 1314 1536; Add 1326 1326 1314;
  Add 1458 1458 1361; Add 1478 1478 1209; Sub 1458 1458 1478; Add 1326 1326 1458; Sub 1122 1122 1326;
  Add 1122 1122 1500; Add 1547 1547 1345; Add 1120 1120 1355; Sub 1547 1547 1120; Add 1517 1517 1449;
  Add 1219 1219 1571; Add 1517 1517 1219; Add 1642 1642 1398; Add 1378 1378 1566; Sub 1642 1642 1378;
  Add 1517 1517 1642; Sub 1547 1547 1517; Add 1547 1547 1471; Add 1330 1330 1585; Add 1386 1386 1107;
  Sub 1330 1330 1386; Add 1513 1513 1022; Add 1347 1347 1416; Add 1513 1513 1347; Add 1270 1270 1502;
  Add 1237 1237 1570; Sub 1270 1270 1237; Add 1513 1513 1270; Sub 1330 1330 1513; Add 1330 1330 1687;
  Add 1547 1547 1330; Add 1122 1122 1547; Add 1699 1699 1122; Add 1658 1658 1699; Mul 1658 216 1658;
  Mul 1687 507 1082; Sub 1658 1658 1687; Add 1101 1101 1038; Sub 1466 1466 1457].
Definition casadi_f0_276 : list instruction := [
  Sub 1101 1101 1466; Sub 1105 1105 1424; Add 1101 1101 1105; Add 1559 1559 1280; Sub 1329 1329 1485;
  Sub 1559 1559 1329; Sub 1667 1667 1608; Add 1559 1559 1667; Add 1123 1123 1321; Sub 1025 1025 1215;
  Sub 1123 1123 1025; Sub 1501 1501 1599; Add 1123 1123 1501; Add 1269 1269 1124; Sub 1673 1673 1443;
  Sub 1269 1269 1673; Sub 1510 1510 1544; Add 1269 1269 1510; Add 1665 1665 1204; Sub 1605 1605 1267;
  Sub 1665 1665 1605; Sub 1196 1196 1118; Add 1665 1665 1196; Add 1269 1269 1665; Add 1123 1123 1269;
  Add 1559 1559 1123; Add 1101 1101 1559; Mul 1101 215 1101; Mul 1196 226 1413; Add 1101 1101 1196;
  Sub 1658 1658 1101; Sub 1117 1117 1144; Sub 1543 1543 1556; Sub 1410 1410 1519; Sub 1375 1375 1420;
  Sub 1411 1411 1112; Add 1375 1375 1411; Add 1410 1410 1375; Add 1543 1543 1410; Add 1117 1117 1543;
  Mul 1112 540 1117; Mul 1420 805 1589; Sub 1112 1112 1420; Add 1601 1601 1493; Sub 1669 1669 1601;
  Sub 1601 1669 1486; Add 1276 1276 1162; Add 1577 1577 1180; Add 1094 1094 1577; Sub 1276 1276 1094;
  Add 1094 1276 1098; Add 1143 1143 1689; Add 1251 1251 1628; Add 1268 1268 1251; Sub 1143 1143 1268;
  Add 1268 1143 1312; Add 1062 1062 1504; Add 1279 1279 1325; Add 1351 1351 1279; Sub 1062 1062 1351;
  Add 1351 1062 1164; Add 1454 1454 1522; Add 1663 1663 1201; Add 1367 1367 1663; Sub 1454 1454 1367;
  Add 1367 1454 1668; Add 1351 1351 1367; Add 1268 1268 1351; Add 1094 1094 1268; Add 1601 1601 1094;
  Mul 1601 544 1601; Mul 1663 693 1060; Add 1601 1601 1663; Add 1112 1112 1601; Sub 1658 1658 1112;
  Add 1467 1467 1658; Mul 1467 215 1467; Add 1636 1636 1467; Sub 1333 1333 1636; Sub 1206 1206 1486;
  Add 1192 1192 1098; Add 1492 1492 1312; Add 1302 1302 1164; Add 1672 1672 1668; Add 1302 1302 1672;
  Add 1492 1492 1302; Add 1192 1192 1492; Add 1206 1206 1192; Mul 1206 216 1206; Mul 1636 305 1082;
  Sub 1206 1206 1636; Mul 1117 215 1117; Mul 1636 805 1413; Add 1117 1117 1636; Sub 1206 1206 1117;
  Add 1016 1016 1206; Mul 1016 540 1016; Mul 1206 307 1589; Sub 1016 1016 1206; Mul 1206 360 1060;
  Mul 1183 216 1183; Mul 1117 806 1082; Sub 1183 1183 1117; Add 1669 1669 1486; Sub 1276 1276 1098;
  Sub 1143 1143 1312; Sub 1062 1062 1164; Sub 1454 1454 1668; Add 1062 1062 1454; Add 1143 1143 1062;
  Add 1276 1276 1143; Add 1669 1669 1276; Mul 1669 215 1669; Mul 1668 700 1413; Add 1669 1669 1668;
  Sub 1183 1183 1669; Add 1648 1648 1183; Mul 1648 544 1648; Add 1206 1206 1648; Add 1016 1016 1206;
  Sub 1333 1333 1016; Mul 1333 1 1333; Mul 1016 469 1451; Add 1333 1333 1016; Add 1418 1418 1333;
  Mul 1333 602 1511; Mul 1016 783 1129; Add 1333 1333 1016; Mul 1016 670 1579; Mul 1206 488 1583;
  Add 1016 1016 1206; Add 1333 1333 1016; Mul 1016 671 1296; Mul 1206 532 1316; Add 1016 1016 1206;
  Sub 1333 1333 1016; Mul 1016 679 1496; Mul 1206 523 1149; Add 1016 1016 1206; Mul 1206 796 1310;
  Mul 1179 680 1179; Mul 1648 255 1150; Add 1179 1179 1648; Mul 1303 674 1303; Mul 1648 278 1370;
  Sub 1303 1303 1648; Sub 1179 1179 1303; Mul 1089 216 1089; Mul 1303 294 1082].
Definition casadi_f0_277 : list instruction := [
  Sub 1089 1089 1303; Mul 1161 215 1161; Mul 1303 299 1413; Add 1161 1161 1303; Add 1089 1089 1161;
  Sub 1179 1179 1089; Mul 1089 670 1310; Mul 1161 502 1583; Add 1089 1089 1161; Mul 1161 602 1084;
  Mul 1303 505 1129; Add 1161 1161 1303; Sub 1089 1089 1161; Sub 1089 1179 1089; Mul 1089 672 1089;
  Mul 1161 502 1089; Add 1206 1206 1161; Sub 1016 1016 1206; Add 1333 1333 1016; Mul 1016 674 1218;
  Mul 1206 794 1370; Sub 1016 1016 1206; Mul 1206 680 1488; Mul 1161 689 1150; Add 1303 1206 1161;
  Add 1256 1256 1624; Add 1132 1132 1382; Add 1468 1468 1132; Sub 1256 1256 1468; Add 1468 1256 1203;
  Add 1670 1670 1187; Add 1412 1412 1175; Add 1542 1542 1412; Sub 1670 1670 1542; Add 1542 1670 1173;
  Add 1532 1532 1274; Add 1618 1618 1257; Add 1242 1242 1618; Sub 1532 1532 1242; Add 1242 1532 1422;
  Add 1168 1168 1551; Add 1425 1425 1221; Add 1137 1137 1425; Sub 1168 1168 1137; Add 1137 1168 1154;
  Add 1242 1242 1137; Add 1542 1542 1242; Add 1468 1468 1542; Mul 1468 676 1468; Mul 1425 410 1287;
  Add 1468 1468 1425; Sub 1303 1303 1468; Add 1016 1016 1303; Mul 1303 215 1528; Mul 1468 461 1413;
  Add 1303 1303 1468; Mul 1581 216 1581; Mul 1468 277 1082; Sub 1581 1581 1468; Sub 1303 1303 1581;
  Add 1016 1016 1303; Add 1333 1333 1016; Mul 1333 216 1333; Mul 1016 707 1082; Sub 1333 1333 1016;
  Mul 1016 793 1413; Mul 1303 602 1216; Mul 1468 491 1129; Add 1303 1303 1468; Mul 1468 670 1511;
  Mul 1425 783 1583; Add 1468 1468 1425; Add 1303 1303 1468; Mul 1468 671 1634; Mul 1425 517 1316;
  Add 1468 1468 1425; Sub 1303 1303 1468; Mul 1468 796 1084; Mul 1425 505 1089; Add 1468 1468 1425;
  Mul 1425 675 1496; Mul 1221 523 1649; Add 1425 1425 1221; Sub 1468 1468 1425; Add 1303 1303 1468;
  Mul 1468 674 1543; Mul 1425 682 1370; Sub 1468 1468 1425; Mul 1425 680 1094; Mul 1221 808 1150;
  Add 1425 1425 1221; Add 1545 1545 1295; Sub 1696 1696 1545; Add 1239 1239 1417; Add 1696 1696 1239;
  Sub 1239 1696 1436; Add 1537 1537 1319; Sub 1653 1653 1537; Add 1127 1127 1229; Add 1653 1653 1127;
  Sub 1127 1653 1087; Add 1655 1655 1343; Sub 1498 1498 1655; Add 1383 1383 1230; Add 1498 1498 1383;
  Sub 1383 1498 1298; Add 1096 1096 1238; Sub 1452 1452 1096; Add 1141 1141 1627; Add 1452 1452 1141;
  Sub 1141 1452 1586; Add 1383 1383 1141; Add 1127 1127 1383; Add 1239 1239 1127; Mul 1239 676 1239;
  Mul 1627 301 1287; Add 1239 1239 1627; Sub 1425 1425 1239; Add 1425 1468 1425; Mul 1559 215 1559;
  Mul 1239 303 1413; Add 1627 1559 1239; Mul 1096 216 1699; Mul 1238 468 1082; Sub 1096 1096 1238;
  Sub 1627 1627 1096; Add 1425 1425 1627; Add 1303 1303 1425; Mul 1303 215 1303; Add 1016 1016 1303;
  Sub 1303 1333 1016; Mul 1543 215 1543; Mul 1425 682 1413; Add 1627 1543 1425; Mul 1096 216 1192;
  Mul 1238 792 1082; Sub 1096 1096 1238; Sub 1627 1627 1096; Add 1149 1149 1627; Mul 1627 540 1149;
  Mul 1096 233 1589; Sub 1627 1627 1096; Mul 1096 789 1060; Mul 1238 215 1276; Mul 1230 686 1413;
  Add 1238 1238 1230; Mul 1488 216 1488; Mul 1230 689 1082; Sub 1488 1488 1230].
Definition casadi_f0_278 : list instruction := [
  Sub 1238 1238 1488; Add 1649 1649 1238; Mul 1238 544 1649; Add 1096 1096 1238; Add 1627 1627 1096;
  Sub 1303 1303 1627; Mul 1303 2 1303; Mul 1627 285 1167; Add 1303 1303 1627; Add 1418 1418 1303;
  Mul 1303 677 1495; Mul 1627 530 1609; Add 1303 1303 1627; Mul 1627 706 1401; Mul 1096 782 1152;
  Add 1627 1627 1096; Mul 1096 712 1071; Mul 1238 481 1650; Add 1096 1096 1238; Add 1627 1627 1096;
  Sub 1303 1303 1627; Mul 1627 719 1616; Mul 1096 519 1036; Add 1627 1627 1096; Mul 1096 709 1694;
  Mul 1474 216 1474; Mul 1238 348 1082; Sub 1474 1474 1238; Mul 1645 215 1645; Mul 1238 353 1413;
  Add 1645 1645 1238; Add 1474 1474 1645; Mul 1354 714 1354; Mul 1645 332 1538; Add 1354 1354 1645;
  Mul 1019 718 1019; Mul 1645 309 1518; Add 1019 1019 1645; Sub 1354 1354 1019; Add 1474 1474 1354;
  Mul 1354 706 1093; Mul 1019 497 1152; Add 1354 1354 1019; Mul 1019 712 1694; Mul 1645 494 1650;
  Add 1019 1019 1645; Sub 1354 1354 1019; Sub 1354 1474 1354; Mul 1354 156 1354; Mul 1019 494 1354;
  Add 1096 1096 1019; Sub 1627 1627 1096; Add 1303 1303 1627; Mul 1627 716 1542; Mul 1096 403 1640;
  Add 1627 1627 1096; Mul 1096 718 1353; Mul 1019 696 1518; Add 1645 1096 1019; Sub 1627 1627 1645;
  Mul 1645 714 1561; Mul 1238 797 1538; Add 1645 1645 1238; Sub 1627 1627 1645; Mul 1291 216 1291;
  Mul 1645 331 1082; Sub 1291 1291 1645; Mul 1645 215 1682; Mul 1238 414 1413; Add 1645 1645 1238;
  Sub 1645 1291 1645; Add 1627 1627 1645; Add 1303 1303 1627; Mul 1303 216 1303; Mul 1627 790 1082;
  Sub 1303 1303 1627; Mul 1627 704 1413; Mul 1645 677 1026; Mul 1238 513 1609; Add 1645 1645 1238;
  Mul 1238 706 1546; Mul 1230 483 1152; Add 1238 1238 1230; Mul 1230 712 1401; Mul 1655 782 1650;
  Add 1230 1230 1655; Add 1238 1238 1230; Sub 1645 1645 1238; Mul 1238 709 1093; Mul 1230 497 1354;
  Add 1238 1238 1230; Mul 1230 711 1616; Mul 1655 519 1651; Add 1230 1230 1655; Sub 1238 1238 1230;
  Add 1645 1645 1238; Mul 1238 716 1127; Mul 1230 293 1640; Add 1238 1238 1230; Mul 1230 718 1268;
  Mul 1655 415 1518; Add 1230 1230 1655; Sub 1238 1238 1230; Mul 1230 714 1410; Mul 1655 685 1538;
  Add 1343 1230 1655; Sub 1238 1238 1343; Mul 1343 216 1122; Mul 1229 416 1082; Sub 1343 1343 1229;
  Mul 1123 215 1123; Mul 1229 357 1413; Add 1537 1123 1229; Sub 1343 1343 1537; Add 1238 1238 1343;
  Add 1645 1645 1238; Mul 1645 215 1645; Add 1627 1627 1645; Sub 1645 1303 1627; Mul 1238 216 1492;
  Mul 1343 795 1082; Sub 1238 1238 1343; Mul 1410 215 1410; Mul 1343 685 1413; Add 1537 1410 1343;
  Sub 1238 1238 1537; Add 1036 1036 1238; Mul 1238 540 1036; Mul 1537 697 1589; Sub 1238 1238 1537;
  Mul 1537 695 1060; Mul 1353 216 1353; Mul 1319 696 1082; Sub 1353 1353 1319; Mul 1319 215 1143;
  Mul 1417 448 1413; Add 1319 1319 1417; Sub 1319 1353 1319; Add 1651 1651 1319; Mul 1319 544 1651;
  Add 1537 1537 1319; Add 1238 1238 1537; Sub 1238 1645 1238; Mul 1238 3 1238; Mul 1537 691 1567;
  Add 1238 1238 1537; Add 1418 1418 1238; Mul 1238 715 1177; Mul 1537 606 1189].
Definition casadi_f0_279 : list instruction := [
  Add 1238 1238 1537; Mul 1537 721 1104; Mul 1319 786 1243; Add 1537 1537 1319; Add 1238 1238 1537;
  Mul 1537 722 1235; Mul 1319 528 1529; Add 1537 1537 1319; Add 1238 1238 1537; Mul 1537 730 1114;
  Mul 1319 515 1450; Add 1537 1537 1319; Mul 1319 683 1435; Mul 1600 310 1600; Mul 1417 408 1231;
  Add 1600 1600 1417; Mul 1109 327 1109; Mul 1417 404 1662; Add 1109 1109 1417; Sub 1600 1600 1109;
  Mul 1236 731 1236; Mul 1109 363 1052; Add 1236 1236 1109; Mul 1185 725 1185; Mul 1109 387 1263;
  Add 1185 1185 1109; Sub 1236 1236 1185; Add 1600 1600 1236; Mul 1236 721 1435; Mul 1185 486 1243;
  Add 1236 1236 1185; Mul 1185 715 1121; Mul 1109 489 1189; Add 1185 1185 1109; Sub 1236 1236 1185;
  Sub 1236 1600 1236; Mul 1236 723 1236; Mul 1185 486 1236; Add 1319 1319 1185; Sub 1537 1537 1319;
  Add 1238 1238 1537; Mul 1537 725 1691; Mul 1319 800 1263; Add 1537 1537 1319; Mul 1319 731 1593;
  Mul 1185 703 1052; Add 1109 1319 1185; Mul 1417 727 1242; Mul 1545 306 1617; Add 1417 1417 1545;
  Add 1109 1109 1417; Add 1537 1537 1109; Mul 1109 310 1415; Mul 1417 361 1231; Add 1109 1109 1417;
  Mul 1253 327 1253; Mul 1417 386 1662; Add 1545 1253 1417; Mul 1295 318 1444; Mul 1221 59 1111;
  Add 1295 1295 1221; Add 1545 1545 1295; Add 1109 1109 1545; Sub 1537 1537 1109; Add 1238 1238 1537;
  Mul 1537 216 1238; Mul 1109 690 1082; Sub 1537 1537 1109; Mul 1109 807 1413; Mul 1545 715 1250;
  Mul 1295 705 1189; Add 1545 1545 1295; Mul 1295 721 1177; Mul 1221 606 1243; Add 1295 1295 1221;
  Add 1545 1545 1295; Mul 1295 722 1332; Mul 1221 510 1529; Add 1295 1295 1221; Add 1545 1545 1295;
  Mul 1295 683 1121; Mul 1221 489 1236; Add 1295 1295 1221; Mul 1221 726 1114; Mul 1551 515 1320;
  Add 1221 1221 1551; Sub 1295 1295 1221; Add 1545 1545 1295; Mul 1295 725 1375; Mul 1221 692 1263;
  Add 1551 1295 1221; Mul 1618 731 1351; Mul 1257 465 1052; Add 1618 1618 1257; Mul 1257 727 1383;
  Mul 1274 785 1617; Add 1257 1257 1274; Add 1618 1618 1257; Add 1551 1551 1618; Mul 1269 310 1269;
  Mul 1618 412 1231; Add 1257 1269 1618; Mul 1274 327 1547; Mul 1412 407 1662; Add 1274 1274 1412;
  Mul 1412 318 1134; Mul 1175 580 1111; Add 1412 1412 1175; Add 1274 1274 1412; Add 1257 1257 1274;
  Sub 1551 1551 1257; Add 1545 1545 1551; Mul 1551 215 1545; Add 1109 1109 1551; Sub 1551 1537 1109;
  Mul 1375 310 1375; Mul 1257 692 1231; Add 1274 1375 1257; Mul 1412 327 1302; Mul 1175 798 1662;
  Add 1412 1412 1175; Mul 1175 318 1248; Mul 1187 640 1111; Add 1175 1175 1187; Add 1412 1412 1175;
  Add 1274 1274 1412; Sub 1450 1450 1274; Mul 1274 540 1450; Mul 1412 811 1589; Sub 1274 1274 1412;
  Mul 1412 813 1060; Mul 1175 310 1062; Mul 1187 464 1231; Add 1175 1175 1187; Mul 1593 327 1593;
  Mul 1187 703 1662; Add 1132 1593 1187; Mul 1382 318 1700; Mul 1624 662 1111; Add 1382 1382 1624;
  Add 1132 1132 1382; Add 1175 1175 1132; Sub 1320 1320 1175; Mul 1175 544 1320; Add 1412 1412 1175;
  Add 1274 1274 1412; Sub 1274 1551 1274; Mul 1274 4 1274; Mul 1412 812 1157].
Definition casadi_f0_280 : list instruction := [
  Add 1274 1274 1412; Add 1418 1418 1274; Mul 1274 728 1394; Mul 1412 609 1338; Add 1274 1274 1412;
  Mul 1412 733 1147; Mul 1175 604 1475; Add 1412 1412 1175; Add 1274 1274 1412; Mul 1412 734 1400;
  Mul 1175 426 1365; Add 1412 1412 1175; Add 1274 1274 1412; Mul 1412 739 1233; Mul 1175 438 1620;
  Add 1412 1412 1175; Mul 1175 816 1289; Mul 1490 358 1490; Mul 1132 462 1524; Add 1490 1490 1132;
  Mul 1590 372 1590; Mul 1132 458 1678; Add 1590 1590 1132; Sub 1490 1490 1590; Mul 1509 741 1509;
  Mul 1590 417 1200; Add 1509 1509 1590; Mul 1258 736 1258; Mul 1590 441 1592; Add 1258 1258 1590;
  Sub 1509 1509 1258; Add 1490 1490 1509; Mul 1509 733 1289; Mul 1258 445 1475; Add 1509 1509 1258;
  Mul 1258 728 1359; Mul 1590 434 1338; Add 1258 1258 1590; Sub 1509 1509 1258; Sub 1490 1490 1509;
  Mul 1490 430 1490; Mul 1509 445 1490; Add 1175 1175 1509; Sub 1412 1412 1175; Add 1274 1274 1412;
  Mul 1412 736 1565; Mul 1175 803 1592; Add 1412 1412 1175; Mul 1175 741 1266; Mul 1509 710 1200;
  Add 1258 1175 1509; Mul 1590 738 1137; Mul 1132 356 1647; Add 1590 1590 1132; Add 1258 1258 1590;
  Add 1412 1412 1258; Mul 1258 358 1272; Mul 1590 352 1524; Add 1258 1258 1590; Mul 1252 372 1252;
  Mul 1590 440 1678; Add 1132 1252 1590; Mul 1382 369 1018; Mul 1624 36 1674; Add 1382 1382 1624;
  Add 1132 1132 1382; Add 1258 1258 1132; Sub 1412 1412 1258; Add 1274 1274 1412; Mul 1412 216 1274;
  Mul 1258 814 1082; Sub 1412 1412 1258; Mul 1258 817 1413; Mul 1338 13 1338; Mul 1132 728 1102;
  Sub 1338 1338 1132; Mul 1132 733 1394; Mul 1475 609 1475; Add 1132 1132 1475; Add 1338 1338 1132;
  Mul 1132 734 1526; Mul 1365 443 1365; Add 1132 1132 1365; Add 1338 1338 1132; Mul 1132 816 1359;
  Mul 1365 434 1490; Add 1132 1132 1365; Mul 1365 735 1233; Mul 1475 438 1456; Add 1365 1365 1475;
  Sub 1132 1132 1365; Add 1338 1338 1132; Mul 1132 736 1411; Mul 1365 699 1592; Add 1475 1132 1365;
  Mul 1382 741 1367; Mul 1624 394 1200; Add 1382 1382 1624; Mul 1624 738 1141; Mul 1648 245 1647;
  Add 1624 1624 1648; Add 1382 1382 1624; Add 1475 1475 1382; Mul 1665 358 1665; Mul 1382 466 1524;
  Add 1624 1665 1382; Mul 1648 372 1330; Mul 1183 359 1678; Add 1648 1648 1183; Mul 1183 369 1199;
  Mul 1669 593 1674; Add 1183 1183 1669; Add 1648 1648 1183; Add 1624 1624 1648; Sub 1475 1475 1624;
  Add 1338 1338 1475; Mul 1475 215 1338; Add 1258 1258 1475; Sub 1475 1412 1258; Mul 1411 358 1411;
  Mul 1624 699 1524; Add 1648 1411 1624; Mul 1183 372 1672; Mul 1669 801 1678; Add 1183 1183 1669;
  Mul 1669 369 1646; Mul 1668 645 1674; Add 1669 1669 1668; Add 1183 1183 1669; Add 1648 1648 1183;
  Sub 1620 1620 1648; Mul 1648 540 1620; Mul 1183 820 1589; Sub 1648 1648 1183; Mul 1183 822 1060;
  Mul 1669 358 1454; Mul 1668 457 1524; Add 1669 1669 1668; Mul 1266 372 1266; Mul 1668 710 1678;
  Add 1164 1266 1668; Mul 1312 369 1523; Mul 1098 666 1674; Add 1312 1312 1098; Add 1164 1164 1312;
  Add 1669 1669 1164; Sub 1456 1456 1669; Mul 1669 544 1456; Add 1183 1183 1669].
Definition casadi_f0_281 : list instruction := [
  Add 1648 1648 1183; Sub 1648 1475 1648; Mul 1648 5 1648; Mul 1183 821 1077; Add 1648 1648 1183;
  Add 1418 1418 1648; Mul 1462 85 1462; Mul 1163 79 1163; Sub 1462 1462 1163; Mul 1074 54 1074;
  Mul 1393 61 1393; Sub 1074 1074 1393; Mul 1079 19 1079; Mul 1393 763 1048; Sub 1079 1079 1393;
  Mul 1393 751 1426; Mul 1684 35 1684; Add 1393 1393 1684; Sub 1079 1079 1393; Mul 1613 55 1613;
  Mul 1086 62 1086; Sub 1613 1613 1086; Add 1079 1079 1613; Add 1074 1074 1079; Mul 1042 86 1042;
  Mul 1055 91 1055; Sub 1042 1042 1055; Add 1042 1074 1042; Add 1462 1462 1042; Mul 1482 102 1482;
  Sub 1482 1462 1482; Mul 1409 101 1409; Add 1482 1482 1409; Add 1418 1418 1482; Mul 1482 777 1418;
  Sub 1505 1505 1482; Add 1148 1148 1505; Div 1505 1049 92; Mul 1482 1023 1211; Sub 1505 1505 1482;
  Mul 1482 767 1505; Mul 1135 674 1135; Mul 1409 630 1370; Sub 1135 1135 1409; Mul 1409 654 1150;
  Mul 1666 680 1666; Add 1409 1409 1666; Add 1202 1202 1622; Sub 1409 1409 1202; Add 1135 1135 1409;
  Mul 1409 615 1413; Mul 1371 215 1371; Add 1409 1409 1371; Mul 1539 216 1539; Mul 1371 7 1082;
  Sub 1539 1539 1371; Sub 1409 1409 1539; Add 1135 1135 1409; Mul 1135 0 1135; Mul 1409 771 1459;
  Add 1135 1135 1409; Mul 1409 748 1075; Mul 1539 216 1496; Mul 1371 523 1082; Sub 1539 1539 1371;
  Add 1539 1370 1539; Mul 1539 672 1539; Mul 1371 545 1539; Sub 1409 1409 1371; Mul 1371 216 1310;
  Mul 1202 502 1082; Sub 1371 1371 1202; Mul 1202 215 1084; Mul 1622 505 1413; Add 1202 1202 1622;
  Add 1371 1371 1202; Sub 1371 1371 1287; Mul 1371 672 1371; Mul 1202 504 1371; Mul 1622 750 1564;
  Add 1202 1202 1622; Mul 1622 215 1496; Mul 1666 523 1413; Add 1622 1622 1666; Sub 1622 1150 1622;
  Mul 1622 672 1622; Mul 1666 541 1622; Mul 1042 627 1208; Add 1666 1666 1042; Sub 1202 1202 1666;
  Add 1409 1409 1202; Mul 1634 215 1634; Mul 1202 517 1413; Add 1634 1634 1202; Mul 1296 216 1296;
  Mul 1202 532 1082; Sub 1296 1296 1202; Sub 1634 1634 1296; Mul 1296 627 1310; Mul 1202 502 1622;
  Add 1296 1296 1202; Mul 1202 748 1084; Mul 1666 505 1539; Sub 1202 1202 1666; Sub 1296 1296 1202;
  Add 1634 1634 1296; Mul 1634 508 1634; Mul 1296 744 1119; Add 1634 1634 1296; Mul 1296 215 1511;
  Mul 1202 783 1413; Add 1296 1296 1202; Mul 1579 216 1579; Mul 1202 488 1082; Sub 1579 1579 1202;
  Sub 1296 1296 1579; Mul 1579 748 1496; Mul 1539 523 1539; Sub 1579 1579 1539; Mul 1310 750 1310;
  Mul 1539 502 1371; Add 1310 1310 1539; Sub 1579 1579 1310; Add 1296 1296 1579; Mul 1296 536 1296;
  Mul 1579 824 1130; Add 1296 1296 1579; Sub 1634 1634 1296; Mul 1216 215 1216; Mul 1296 491 1413;
  Add 1216 1216 1296; Mul 1511 216 1511; Mul 1296 783 1082; Sub 1511 1511 1296; Sub 1216 1216 1511;
  Mul 1084 750 1084; Mul 1371 505 1371; Add 1084 1084 1371; Mul 1496 627 1496; Mul 1622 523 1622;
  Add 1496 1496 1622; Sub 1084 1084 1496; Add 1216 1216 1084; Mul 1216 526 1216; Mul 1084 825 1103;
  Add 1216 1216 1084; Sub 1634 1634 1216; Add 1409 1409 1634; Mul 1192 674 1192].
Definition casadi_f0_282 : list instruction := [
  Mul 1634 792 1370; Sub 1192 1192 1634; Add 1161 1161 1206; Mul 1206 298 1287; Sub 1256 1256 1203;
  Sub 1670 1670 1173; Sub 1532 1532 1422; Sub 1168 1168 1154; Add 1532 1532 1168; Add 1670 1670 1532;
  Add 1256 1256 1670; Mul 1154 676 1256; Add 1206 1206 1154; Sub 1161 1161 1206; Add 1192 1192 1161;
  Mul 1161 468 1413; Mul 1699 215 1699; Add 1161 1161 1699; Sub 1161 1161 1581; Add 1192 1192 1161;
  Mul 1192 216 1192; Mul 1161 823 1082; Sub 1192 1192 1161; Mul 1161 686 1150; Mul 1276 680 1276;
  Add 1161 1161 1276; Mul 1276 232 1287; Add 1696 1696 1436; Add 1653 1653 1087; Add 1498 1498 1298;
  Add 1452 1452 1586; Add 1498 1498 1452; Add 1653 1653 1498; Add 1696 1696 1653; Mul 1586 676 1696;
  Add 1276 1276 1586; Sub 1161 1161 1276; Add 1468 1468 1161; Add 1239 1239 1559; Mul 1528 216 1528;
  Mul 1559 461 1082; Sub 1528 1528 1559; Sub 1239 1239 1528; Add 1468 1468 1239; Mul 1468 215 1468;
  Mul 1239 668 1413; Add 1468 1468 1239; Sub 1192 1192 1468; Add 1425 1425 1543; Mul 1218 216 1218;
  Mul 1543 794 1082; Sub 1218 1218 1543; Sub 1425 1425 1218; Mul 1425 540 1425; Mul 1218 664 1589;
  Sub 1425 1425 1218; Mul 1218 808 1413; Mul 1094 215 1094; Add 1218 1218 1094; Sub 1218 1218 1488;
  Mul 1218 544 1218; Mul 1488 642 1060; Add 1218 1218 1488; Add 1425 1425 1218; Sub 1192 1192 1425;
  Add 1409 1409 1192; Mul 1409 1 1409; Mul 1192 760 1451; Add 1409 1409 1192; Add 1135 1135 1409;
  Mul 1149 674 1149; Mul 1409 233 1370; Sub 1149 1149 1409; Mul 1409 789 1150; Mul 1649 680 1649;
  Add 1409 1409 1649; Mul 1649 637 1287; Mul 1696 215 1696; Mul 1192 232 1413; Add 1696 1696 1192;
  Mul 1256 216 1256; Mul 1192 298 1082; Sub 1256 1256 1192; Sub 1696 1696 1256; Add 1089 1089 1696;
  Mul 1089 676 1089; Add 1649 1649 1089; Sub 1409 1409 1649; Add 1149 1149 1409; Sub 1016 1016 1333;
  Add 1149 1149 1016; Mul 1149 2 1149; Mul 1016 826 1167; Add 1149 1149 1016; Add 1135 1135 1149;
  Mul 1149 674 1036; Mul 1016 697 1370; Sub 1149 1149 1016; Mul 1016 695 1150; Mul 1333 680 1651;
  Add 1016 1016 1333; Mul 1333 647 1287; Mul 1409 216 1670; Mul 1649 411 1082; Sub 1409 1409 1649;
  Mul 1649 215 1653; Mul 1089 302 1413; Add 1649 1649 1089; Sub 1409 1409 1649; Add 1354 1354 1409;
  Mul 1409 676 1354; Add 1333 1333 1409; Sub 1016 1016 1333; Add 1149 1149 1016; Sub 1627 1627 1303;
  Add 1149 1149 1627; Mul 1149 3 1149; Mul 1627 347 1567; Add 1149 1149 1627; Add 1135 1135 1149;
  Mul 1149 674 1450; Mul 1627 811 1370; Sub 1149 1149 1627; Mul 1627 813 1150; Mul 1303 680 1320;
  Add 1627 1627 1303; Mul 1303 802 1287; Mul 1016 310 1498; Mul 1333 252 1231; Add 1016 1016 1333;
  Mul 1333 327 1532; Mul 1409 339 1662; Add 1333 1333 1409; Mul 1594 318 1594; Mul 1409 701 1111;
  Add 1649 1594 1409; Add 1333 1333 1649; Add 1016 1016 1333; Sub 1236 1236 1016; Mul 1016 676 1236;
  Add 1303 1303 1016; Sub 1627 1627 1303; Add 1149 1149 1627; Sub 1109 1109 1537; Add 1149 1149 1109;
  Mul 1149 4 1149; Mul 1109 698 1157; Add 1149 1149 1109; Add 1135 1135 1149].
Definition casadi_f0_283 : list instruction := [
  Mul 1149 674 1620; Mul 1109 820 1370; Sub 1149 1149 1109; Mul 1109 822 1150; Mul 1537 680 1456;
  Add 1109 1109 1537; Mul 1537 788 1287; Mul 1627 358 1452; Mul 1303 234 1524; Add 1627 1627 1303;
  Mul 1303 372 1168; Mul 1016 355 1678; Add 1303 1303 1016; Mul 1369 369 1369; Mul 1016 708 1674;
  Add 1333 1369 1016; Add 1303 1303 1333; Add 1627 1627 1303; Sub 1490 1490 1627; Mul 1627 676 1490;
  Add 1537 1537 1627; Sub 1109 1109 1537; Add 1149 1149 1109; Sub 1258 1258 1412; Add 1149 1149 1258;
  Mul 1149 5 1149; Mul 1258 809 1077; Add 1149 1149 1258; Add 1135 1135 1149; Sub 1462 1462 1135;
  Mul 1135 778 1462; Add 1482 1482 1135; Sub 1148 1148 1482; Div 1482 1028 92; Mul 1135 1516 1211;
  Sub 1482 1482 1135; Mul 1135 775 1482; Add 1392 1392 1555; Mul 1555 658 1518; Mul 1176 718 1176;
  Add 1555 1555 1176; Sub 1392 1392 1555; Mul 1555 635 1538; Mul 1364 714 1364; Add 1555 1555 1364;
  Sub 1392 1392 1555; Mul 1591 216 1591; Mul 1555 90 1082; Sub 1591 1591 1555; Mul 1555 566 1413;
  Mul 1677 215 1677; Add 1555 1555 1677; Sub 1591 1591 1555; Add 1392 1392 1591; Mul 1392 0 1392;
  Mul 1591 818 1459; Add 1392 1392 1591; Mul 1591 216 1616; Mul 1555 519 1082; Sub 1591 1591 1555;
  Sub 1591 1591 1538; Mul 1591 156 1591; Mul 1555 545 1591; Mul 1677 684 1075; Add 1555 1555 1677;
  Mul 1677 216 1694; Mul 1364 494 1082; Sub 1677 1677 1364; Mul 1364 215 1093; Mul 1176 497 1413;
  Add 1364 1364 1176; Add 1677 1677 1364; Sub 1677 1640 1677; Mul 1677 156 1677; Mul 1364 504 1677;
  Mul 1176 660 1564; Add 1364 1364 1176; Mul 1176 215 1616; Mul 1149 519 1413; Add 1176 1176 1149;
  Sub 1176 1176 1518; Mul 1176 156 1176; Mul 1149 541 1176; Mul 1258 827 1208; Add 1149 1149 1258;
  Sub 1364 1364 1149; Add 1555 1555 1364; Mul 1495 216 1495; Mul 1364 530 1082; Sub 1495 1495 1364;
  Mul 1026 215 1026; Mul 1364 513 1413; Add 1026 1026 1364; Sub 1495 1495 1026; Mul 1026 827 1694;
  Mul 1364 494 1176; Add 1026 1026 1364; Mul 1364 684 1093; Mul 1149 497 1591; Add 1364 1364 1149;
  Sub 1026 1026 1364; Add 1495 1495 1026; Mul 1026 508 1495; Mul 1364 656 1119; Add 1026 1026 1364;
  Mul 1071 216 1071; Mul 1364 481 1082; Sub 1071 1071 1364; Mul 1364 215 1401; Mul 1149 782 1413;
  Add 1364 1364 1149; Sub 1071 1071 1364; Mul 1364 684 1616; Mul 1149 519 1591; Add 1364 1364 1149;
  Mul 1694 660 1694; Mul 1149 494 1677; Add 1694 1694 1149; Sub 1364 1364 1694; Add 1071 1071 1364;
  Mul 1364 536 1071; Mul 1694 829 1130; Add 1364 1364 1694; Sub 1026 1026 1364; Mul 1401 216 1401;
  Mul 1364 782 1082; Sub 1401 1401 1364; Mul 1546 215 1546; Mul 1364 483 1413; Add 1546 1546 1364;
  Sub 1401 1401 1546; Mul 1093 660 1093; Mul 1546 497 1677; Add 1093 1093 1546; Mul 1616 827 1616;
  Mul 1546 519 1176; Add 1616 1616 1546; Sub 1093 1093 1616; Add 1401 1401 1093; Mul 1093 526 1401;
  Mul 1616 830 1103; Add 1093 1093 1616; Sub 1026 1026 1093; Add 1555 1555 1026; Mul 1026 411 1640;
  Mul 1670 716 1670; Add 1026 1026 1670; Add 1019 1019 1096; Sub 1026 1026 1019].
Definition casadi_f0_284 : list instruction := [
  Mul 1019 795 1538; Mul 1492 714 1492; Add 1019 1019 1492; Sub 1026 1026 1019; Mul 1019 416 1413;
  Mul 1122 215 1122; Add 1019 1019 1122; Sub 1291 1291 1019; Add 1026 1026 1291; Mul 1026 216 1026;
  Mul 1291 828 1082; Sub 1026 1026 1291; Mul 1291 302 1640; Mul 1653 716 1653; Add 1291 1291 1653;
  Mul 1653 448 1518; Mul 1143 718 1143; Add 1653 1653 1143; Sub 1291 1291 1653; Add 1655 1655 1230;
  Sub 1291 1291 1655; Mul 1682 216 1682; Mul 1655 414 1082; Sub 1682 1682 1655; Add 1229 1229 1123;
  Sub 1682 1682 1229; Add 1291 1291 1682; Mul 1291 215 1291; Mul 1682 832 1413; Add 1291 1291 1682;
  Sub 1682 1026 1291; Mul 1561 216 1561; Mul 1229 797 1082; Sub 1561 1561 1229; Add 1343 1343 1410;
  Sub 1561 1561 1343; Mul 1343 540 1561; Mul 1410 835 1589; Sub 1343 1343 1410; Mul 1410 415 1413;
  Mul 1268 215 1268; Add 1410 1410 1268; Sub 1353 1353 1410; Mul 1410 544 1353; Mul 1268 837 1060;
  Add 1410 1410 1268; Add 1343 1343 1410; Sub 1682 1682 1343; Add 1555 1555 1682; Mul 1555 1 1555;
  Mul 1682 632 1451; Add 1555 1555 1682; Add 1392 1392 1555; Mul 1591 678 1591; Mul 1555 684 1282;
  Add 1591 1591 1555; Mul 1176 673 1176; Mul 1555 827 1661; Add 1176 1176 1555; Mul 1677 799 1677;
  Mul 1555 660 1179; Add 1677 1677 1555; Add 1176 1176 1677; Add 1591 1591 1176; Mul 1401 602 1401;
  Mul 1176 830 1129; Add 1401 1401 1176; Mul 1071 670 1071; Mul 1176 829 1583; Add 1071 1071 1176;
  Mul 1495 671 1495; Mul 1176 656 1316; Add 1495 1495 1176; Sub 1071 1071 1495; Add 1401 1401 1071;
  Add 1591 1591 1401; Mul 1561 674 1561; Mul 1401 835 1370; Sub 1561 1561 1401; Mul 1353 680 1353;
  Mul 1401 837 1150; Add 1353 1353 1401; Mul 1542 216 1542; Mul 1401 403 1082; Sub 1542 1542 1401;
  Mul 1401 293 1413; Mul 1127 215 1127; Add 1401 1401 1127; Sub 1542 1542 1401; Mul 1542 676 1542;
  Mul 1401 839 1287; Add 1542 1542 1401; Sub 1353 1353 1542; Add 1561 1561 1353; Sub 1291 1291 1026;
  Add 1561 1561 1291; Add 1591 1591 1561; Mul 1591 2 1591; Mul 1561 834 1167; Add 1591 1591 1561;
  Add 1392 1392 1591; Mul 1591 647 1640; Mul 1354 716 1354; Add 1591 1591 1354; Mul 1354 695 1518;
  Mul 1651 718 1651; Add 1354 1354 1651; Sub 1591 1591 1354; Mul 1354 697 1538; Mul 1036 714 1036;
  Add 1354 1354 1036; Sub 1591 1591 1354; Add 1591 1591 1645; Mul 1591 3 1591; Mul 1645 836 1567;
  Add 1591 1591 1645; Add 1392 1392 1591; Mul 1591 802 1640; Mul 1645 716 1236; Add 1591 1591 1645;
  Mul 1645 813 1518; Mul 1354 718 1320; Add 1645 1645 1354; Sub 1591 1591 1645; Mul 1645 811 1538;
  Mul 1354 714 1450; Add 1645 1645 1354; Sub 1591 1591 1645; Add 1591 1591 1551; Mul 1591 4 1591;
  Mul 1551 702 1157; Add 1591 1591 1551; Add 1392 1392 1591; Mul 1591 788 1640; Mul 1551 716 1490;
  Add 1591 1591 1551; Mul 1551 822 1518; Mul 1645 718 1456; Add 1551 1551 1645; Sub 1591 1591 1551;
  Mul 1551 820 1538; Mul 1645 714 1620; Add 1551 1551 1645; Sub 1591 1591 1551; Add 1591 1591 1475;
  Mul 1591 5 1591; Mul 1475 810 1077; Add 1591 1591 1475; Add 1392 1392 1591].
Definition casadi_f0_285 : list instruction := [
  Add 1392 1392 1074; Mul 1074 769 1392; Sub 1135 1135 1074; Add 1148 1148 1135; Div 1135 1035 92;
  Mul 1074 1637 1211; Sub 1135 1135 1074; Mul 1074 815 1135; Mul 1591 640 1263; Mul 1248 725 1248;
  Add 1591 1591 1248; Mul 1248 662 1052; Mul 1700 731 1700; Add 1248 1248 1700; Add 1255 1255 1222;
  Add 1248 1248 1255; Add 1591 1591 1248; Mul 1248 580 1231; Mul 1134 310 1134; Add 1248 1248 1134;
  Mul 1134 59 1662; Mul 1444 327 1444; Add 1134 1134 1444; Add 1091 1091 1499; Add 1134 1134 1091;
  Add 1248 1248 1134; Sub 1591 1591 1248; Mul 1591 0 1591; Mul 1248 819 1459; Add 1591 1591 1248;
  Mul 1248 327 1114; Mul 1134 515 1662; Add 1248 1248 1134; Mul 1134 318 1121; Mul 1091 489 1111;
  Add 1134 1134 1091; Sub 1248 1248 1134; Sub 1248 1263 1248; Mul 1248 723 1248; Mul 1134 545 1248;
  Mul 1091 831 1075; Add 1134 1134 1091; Mul 1091 310 1121; Mul 1499 489 1231; Add 1091 1091 1499;
  Mul 1499 327 1435; Mul 1444 486 1662; Add 1499 1499 1444; Sub 1091 1091 1499; Sub 1091 1617 1091;
  Mul 1091 723 1091; Mul 1499 504 1091; Mul 1444 840 1564; Add 1499 1499 1444; Mul 1444 318 1435;
  Mul 1255 486 1111; Add 1444 1444 1255; Mul 1255 310 1114; Mul 1222 515 1231; Add 1255 1255 1222;
  Sub 1444 1444 1255; Sub 1444 1052 1444; Mul 1444 723 1444; Mul 1255 541 1444; Mul 1222 842 1208;
  Add 1255 1255 1222; Sub 1499 1499 1255; Add 1134 1134 1499; Mul 1499 842 1435; Mul 1255 486 1444;
  Add 1499 1499 1255; Mul 1255 831 1121; Mul 1222 489 1248; Add 1255 1255 1222; Sub 1499 1499 1255;
  Mul 1255 310 1332; Mul 1222 510 1231; Add 1255 1255 1222; Mul 1222 327 1235; Mul 1700 528 1662;
  Add 1222 1222 1700; Add 1255 1255 1222; Mul 1563 318 1563; Mul 1222 479 1111; Add 1563 1563 1222;
  Add 1255 1255 1563; Sub 1499 1499 1255; Mul 1255 508 1499; Mul 1563 841 1119; Add 1255 1255 1563;
  Mul 1563 831 1114; Mul 1222 515 1248; Add 1563 1563 1222; Mul 1435 840 1435; Mul 1222 486 1091;
  Add 1435 1435 1222; Sub 1563 1563 1435; Mul 1435 310 1177; Mul 1222 606 1231; Add 1435 1435 1222;
  Mul 1104 327 1104; Mul 1222 786 1662; Add 1104 1104 1222; Add 1435 1435 1104; Mul 1235 318 1235;
  Mul 1104 528 1111; Add 1235 1235 1104; Add 1435 1435 1235; Sub 1563 1563 1435; Mul 1435 536 1563;
  Mul 1235 844 1130; Add 1435 1435 1235; Sub 1255 1255 1435; Mul 1121 840 1121; Mul 1435 489 1091;
  Add 1121 1121 1435; Mul 1114 842 1114; Mul 1435 515 1444; Add 1114 1114 1435; Sub 1121 1121 1114;
  Mul 1250 310 1250; Mul 1114 705 1231; Add 1250 1250 1114; Mul 1177 327 1177; Mul 1114 606 1662;
  Add 1177 1177 1114; Add 1250 1250 1177; Mul 1332 318 1332; Mul 1177 510 1111; Add 1332 1332 1177;
  Add 1250 1250 1332; Sub 1121 1121 1250; Mul 1250 526 1121; Mul 1332 845 1103; Add 1250 1250 1332;
  Sub 1255 1255 1250; Add 1134 1134 1255; Add 1257 1257 1375; Mul 1375 800 1662; Mul 1691 327 1691;
  Add 1375 1375 1691; Mul 1691 643 1111; Mul 1348 318 1348; Add 1691 1691 1348; Add 1375 1375 1691;
  Add 1257 1257 1375; Mul 1375 540 1257; Mul 1691 843 1589; Sub 1375 1375 1691].
Definition casadi_f0_286 : list instruction := [
  Mul 1691 465 1231; Mul 1351 310 1351; Add 1691 1691 1351; Add 1187 1187 1593; Mul 1593 665 1111;
  Mul 1402 318 1402; Add 1593 1593 1402; Add 1187 1187 1593; Add 1691 1691 1187; Mul 1187 544 1691;
  Mul 1593 847 1060; Add 1187 1187 1593; Add 1375 1375 1187; Mul 1187 798 1263; Mul 1302 725 1302;
  Add 1187 1187 1302; Add 1185 1185 1319; Mul 1319 339 1617; Mul 1532 727 1532; Add 1319 1319 1532;
  Add 1185 1185 1319; Add 1187 1187 1185; Mul 1185 407 1231; Mul 1547 310 1547; Add 1185 1185 1547;
  Add 1417 1417 1253; Mul 1253 595 1111; Mul 1224 318 1224; Add 1253 1253 1224; Add 1417 1417 1253;
  Add 1185 1185 1417; Sub 1187 1187 1185; Mul 1187 216 1187; Mul 1185 848 1082; Sub 1187 1187 1185;
  Add 1221 1221 1295; Mul 1295 464 1052; Mul 1062 731 1062; Add 1295 1295 1062; Mul 1062 252 1617;
  Mul 1498 727 1498; Add 1062 1062 1498; Add 1295 1295 1062; Add 1221 1221 1295; Add 1618 1618 1269;
  Mul 1269 361 1662; Mul 1415 327 1415; Add 1269 1269 1415; Mul 1415 620 1111; Mul 1598 318 1598;
  Add 1415 1415 1598; Add 1269 1269 1415; Add 1618 1618 1269; Sub 1221 1221 1618; Mul 1221 215 1221;
  Mul 1618 850 1413; Add 1221 1221 1618; Sub 1618 1187 1221; Add 1375 1375 1618; Add 1134 1134 1375;
  Mul 1134 1 1134; Mul 1375 838 1451; Add 1134 1134 1375; Add 1591 1591 1134; Mul 1134 678 1248;
  Mul 1375 831 1282; Add 1134 1134 1375; Mul 1375 673 1444; Mul 1269 842 1661; Add 1375 1375 1269;
  Mul 1269 799 1091; Mul 1415 840 1179; Add 1269 1269 1415; Add 1375 1375 1269; Add 1134 1134 1375;
  Mul 1375 602 1121; Mul 1269 845 1129; Add 1375 1375 1269; Mul 1269 670 1563; Mul 1415 844 1583;
  Add 1269 1269 1415; Mul 1415 671 1499; Mul 1598 841 1316; Add 1415 1415 1598; Sub 1269 1269 1415;
  Add 1375 1375 1269; Add 1134 1134 1375; Mul 1375 785 1231; Mul 1383 310 1383; Add 1375 1375 1383;
  Mul 1383 306 1662; Mul 1242 327 1242; Add 1383 1383 1242; Add 1409 1409 1594; Add 1383 1383 1409;
  Add 1375 1375 1383; Mul 1383 676 1375; Mul 1409 853 1287; Add 1383 1383 1409; Mul 1409 680 1691;
  Mul 1594 847 1150; Add 1409 1409 1594; Sub 1383 1383 1409; Mul 1409 674 1257; Mul 1594 843 1370;
  Sub 1409 1409 1594; Sub 1383 1383 1409; Sub 1221 1221 1187; Add 1383 1383 1221; Add 1134 1134 1383;
  Mul 1134 2 1134; Mul 1383 846 1167; Add 1134 1134 1383; Add 1591 1591 1134; Mul 1248 717 1248;
  Mul 1134 831 1032; Add 1248 1248 1134; Mul 1091 787 1091; Mul 1134 840 1474; Add 1091 1091 1134;
  Mul 1444 713 1444; Mul 1134 842 1228; Add 1444 1444 1134; Sub 1091 1091 1444; Add 1248 1248 1091;
  Mul 1499 677 1499; Mul 1091 841 1609; Add 1499 1499 1091; Mul 1563 712 1563; Mul 1091 844 1650;
  Add 1563 1563 1091; Sub 1499 1499 1563; Mul 1121 706 1121; Mul 1563 845 1152; Add 1121 1121 1563;
  Sub 1499 1499 1121; Add 1248 1248 1499; Mul 1257 714 1257; Mul 1499 843 1538; Add 1257 1257 1499;
  Mul 1691 718 1691; Mul 1499 847 1518; Add 1691 1691 1499; Mul 1375 716 1375; Mul 1499 853 1640;
  Add 1375 1375 1499; Sub 1691 1691 1375; Add 1257 1257 1691; Add 1257 1257 1618].
Definition casadi_f0_287 : list instruction := [
  Add 1248 1248 1257; Mul 1248 3 1248; Mul 1257 854 1567; Add 1248 1248 1257; Add 1591 1591 1248;
  Mul 1248 811 1263; Mul 1450 725 1450; Add 1248 1248 1450; Mul 1450 813 1052; Mul 1320 731 1320;
  Add 1450 1450 1320; Mul 1320 802 1617; Mul 1236 727 1236; Add 1320 1320 1236; Add 1450 1450 1320;
  Add 1248 1248 1450; Mul 1450 807 1231; Mul 1545 310 1545; Add 1450 1450 1545; Mul 1545 690 1662;
  Mul 1238 327 1238; Add 1545 1545 1238; Mul 1238 720 1111; Mul 1172 318 1172; Add 1238 1238 1172;
  Add 1545 1545 1238; Add 1450 1450 1545; Sub 1248 1248 1450; Mul 1248 4 1248; Mul 1450 851 1157;
  Add 1248 1248 1450; Add 1591 1591 1248; Mul 1248 820 1263; Mul 1450 725 1620; Add 1248 1248 1450;
  Mul 1450 822 1052; Mul 1545 731 1456; Add 1450 1450 1545; Mul 1545 788 1617; Mul 1238 727 1490;
  Add 1545 1545 1238; Add 1450 1450 1545; Add 1248 1248 1450; Mul 1450 817 1231; Mul 1545 310 1338;
  Add 1450 1450 1545; Mul 1545 814 1662; Mul 1238 327 1274; Add 1545 1545 1238; Mul 1238 732 1111;
  Mul 1172 318 1340; Add 1238 1238 1172; Add 1545 1545 1238; Add 1450 1450 1545; Sub 1248 1248 1450;
  Mul 1248 5 1248; Mul 1450 852 1077; Add 1248 1248 1450; Add 1591 1591 1248; Sub 1207 1207 1591;
  Mul 1591 761 1207; Add 1074 1074 1591; Add 1148 1148 1074; Div 1074 1508 92; Mul 1591 1619 1211;
  Sub 1074 1074 1591; Mul 1591 833 1074; Mul 1248 645 1592; Mul 1646 736 1646; Add 1248 1248 1646;
  Mul 1646 666 1200; Mul 1523 741 1523; Add 1646 1646 1523; Add 1635 1635 1360; Add 1646 1646 1635;
  Add 1248 1248 1646; Mul 1646 593 1524; Mul 1199 358 1199; Add 1646 1646 1199; Mul 1199 36 1678;
  Mul 1018 372 1018; Add 1199 1199 1018; Add 1693 1693 1681; Add 1199 1199 1693; Add 1646 1646 1199;
  Sub 1248 1248 1646; Mul 1646 0 1248; Mul 1459 849 1459; Add 1646 1646 1459; Mul 1459 372 1233;
  Mul 1199 438 1678; Add 1459 1459 1199; Mul 1199 369 1359; Mul 1693 434 1674; Add 1199 1199 1693;
  Sub 1459 1459 1199; Sub 1459 1592 1459; Mul 1459 430 1459; Mul 1199 545 1459; Mul 1075 856 1075;
  Add 1199 1199 1075; Mul 1075 358 1359; Mul 1693 434 1524; Add 1075 1075 1693; Mul 1693 372 1289;
  Mul 1681 445 1678; Add 1693 1693 1681; Sub 1075 1075 1693; Sub 1075 1647 1075; Mul 1075 430 1075;
  Mul 1693 504 1075; Mul 1564 858 1564; Add 1693 1693 1564; Mul 1564 369 1289; Mul 1681 445 1674;
  Add 1564 1564 1681; Mul 1681 358 1233; Mul 1018 438 1524; Add 1681 1681 1018; Sub 1564 1564 1681;
  Sub 1564 1200 1564; Mul 1564 430 1564; Mul 1681 541 1564; Mul 1208 860 1208; Add 1681 1681 1208;
  Sub 1693 1693 1681; Add 1199 1199 1693; Mul 1693 860 1289; Mul 1681 445 1564; Add 1693 1693 1681;
  Mul 1681 856 1359; Mul 1208 434 1459; Add 1681 1681 1208; Sub 1693 1693 1681; Mul 1681 358 1526;
  Mul 1208 443 1524; Add 1681 1681 1208; Mul 1208 372 1400; Mul 1018 426 1678; Add 1208 1208 1018;
  Add 1681 1681 1208; Mul 1549 369 1549; Mul 1208 478 1674; Add 1549 1549 1208; Add 1681 1681 1549;
  Sub 1693 1693 1681; Mul 1681 508 1693; Mul 1119 859 1119; Add 1681 1681 1119].
Definition casadi_f0_288 : list instruction := [
  Mul 1119 856 1233; Mul 1549 438 1459; Add 1119 1119 1549; Mul 1289 858 1289; Mul 1549 445 1075;
  Add 1289 1289 1549; Sub 1119 1119 1289; Mul 1289 358 1394; Mul 1549 609 1524; Add 1289 1289 1549;
  Mul 1147 372 1147; Mul 1549 604 1678; Add 1147 1147 1549; Add 1289 1289 1147; Mul 1400 369 1400;
  Mul 1147 426 1674; Add 1400 1400 1147; Add 1289 1289 1400; Sub 1119 1119 1289; Mul 1289 536 1119;
  Mul 1130 862 1130; Add 1289 1289 1130; Sub 1681 1681 1289; Mul 1359 858 1359; Mul 1289 434 1075;
  Add 1359 1359 1289; Mul 1233 860 1233; Mul 1289 438 1564; Add 1233 1233 1289; Sub 1359 1359 1233;
  Mul 1233 13 1524; Mul 1102 358 1102; Sub 1233 1233 1102; Mul 1394 372 1394; Mul 1102 609 1678;
  Add 1394 1394 1102; Add 1233 1233 1394; Mul 1526 369 1526; Mul 1394 443 1674; Add 1526 1526 1394;
  Add 1233 1233 1526; Sub 1359 1359 1233; Mul 1233 526 1359; Mul 1103 863 1103; Add 1233 1233 1103;
  Sub 1681 1681 1233; Add 1199 1199 1681; Add 1624 1624 1411; Mul 1411 803 1678; Mul 1565 372 1565;
  Add 1411 1411 1565; Mul 1565 648 1674; Mul 1388 369 1388; Add 1565 1565 1388; Add 1411 1411 1565;
  Add 1624 1624 1411; Mul 1411 540 1624; Mul 1589 861 1589; Sub 1411 1411 1589; Mul 1589 394 1524;
  Mul 1367 358 1367; Add 1589 1589 1367; Add 1668 1668 1266; Mul 1266 669 1674; Mul 1309 369 1309;
  Add 1266 1266 1309; Add 1668 1668 1266; Add 1589 1589 1668; Mul 1668 544 1589; Mul 1060 865 1060;
  Add 1668 1668 1060; Add 1411 1411 1668; Mul 1668 801 1592; Mul 1672 736 1672; Add 1668 1668 1672;
  Add 1509 1509 1175; Mul 1175 355 1647; Mul 1168 738 1168; Add 1175 1175 1168; Add 1509 1509 1175;
  Add 1668 1668 1509; Mul 1509 359 1524; Mul 1330 358 1330; Add 1509 1509 1330; Add 1590 1590 1252;
  Mul 1252 608 1674; Mul 1169 369 1169; Add 1252 1252 1169; Add 1590 1590 1252; Add 1509 1509 1590;
  Sub 1668 1668 1509; Mul 1509 216 1668; Mul 1082 866 1082; Sub 1509 1509 1082; Add 1365 1365 1132;
  Mul 1132 457 1200; Mul 1454 741 1454; Add 1132 1132 1454; Mul 1454 234 1647; Mul 1452 738 1452;
  Add 1454 1454 1452; Add 1132 1132 1454; Add 1365 1365 1132; Add 1382 1382 1665; Mul 1665 352 1678;
  Mul 1272 372 1272; Add 1665 1665 1272; Mul 1272 622 1674; Mul 1315 369 1315; Add 1272 1272 1315;
  Add 1665 1665 1272; Add 1382 1382 1665; Sub 1365 1365 1382; Mul 1382 215 1365; Mul 1413 868 1413;
  Add 1382 1382 1413; Sub 1413 1509 1382; Add 1411 1411 1413; Add 1199 1199 1411; Mul 1199 1 1199;
  Mul 1451 857 1451; Add 1199 1199 1451; Add 1646 1646 1199; Mul 1199 678 1459; Mul 1282 856 1282;
  Add 1199 1199 1282; Mul 1282 673 1564; Mul 1661 860 1661; Add 1282 1282 1661; Mul 1661 799 1075;
  Mul 1179 858 1179; Add 1661 1661 1179; Add 1282 1282 1661; Add 1199 1199 1282; Mul 1282 602 1359;
  Mul 1129 863 1129; Add 1282 1282 1129; Mul 1129 670 1119; Mul 1583 862 1583; Add 1129 1129 1583;
  Mul 1583 671 1693; Mul 1316 859 1316; Add 1583 1583 1316; Sub 1129 1129 1583; Add 1282 1282 1129;
  Add 1199 1199 1282; Mul 1282 245 1524; Mul 1141 358 1141; Add 1282 1282 1141].
Definition casadi_f0_289 : list instruction := [
  Mul 1141 356 1678; Mul 1137 372 1137; Add 1141 1141 1137; Add 1016 1016 1369; Add 1141 1141 1016;
  Add 1282 1282 1141; Mul 1141 676 1282; Mul 1287 871 1287; Add 1141 1141 1287; Mul 1287 680 1589;
  Mul 1150 865 1150; Add 1287 1287 1150; Sub 1141 1141 1287; Mul 1287 674 1624; Mul 1370 861 1370;
  Sub 1287 1287 1370; Sub 1141 1141 1287; Sub 1382 1382 1509; Add 1141 1141 1382; Add 1199 1199 1141;
  Mul 1199 2 1199; Mul 1167 864 1167; Add 1199 1199 1167; Add 1646 1646 1199; Mul 1199 717 1459;
  Mul 1032 856 1032; Add 1199 1199 1032; Mul 1032 787 1075; Mul 1474 858 1474; Add 1032 1032 1474;
  Mul 1474 713 1564; Mul 1228 860 1228; Add 1474 1474 1228; Sub 1032 1032 1474; Add 1199 1199 1032;
  Mul 1032 677 1693; Mul 1609 859 1609; Add 1032 1032 1609; Mul 1609 712 1119; Mul 1650 862 1650;
  Add 1609 1609 1650; Sub 1032 1032 1609; Mul 1609 706 1359; Mul 1152 863 1152; Add 1609 1609 1152;
  Sub 1032 1032 1609; Add 1199 1199 1032; Mul 1032 714 1624; Mul 1538 861 1538; Add 1032 1032 1538;
  Mul 1538 718 1589; Mul 1518 865 1518; Add 1538 1538 1518; Mul 1518 716 1282; Mul 1640 871 1640;
  Add 1518 1518 1640; Sub 1538 1538 1518; Add 1032 1032 1538; Add 1032 1032 1413; Add 1199 1199 1032;
  Mul 1199 3 1199; Mul 1567 872 1567; Add 1199 1199 1567; Add 1646 1646 1199; Mul 1459 729 1459;
  Mul 1701 856 1701; Add 1459 1459 1701; Mul 1564 724 1564; Mul 1460 860 1460; Add 1564 1564 1460;
  Mul 1075 688 1075; Mul 1600 858 1600; Add 1075 1075 1600; Add 1564 1564 1075; Add 1459 1459 1564;
  Mul 1359 715 1359; Mul 1189 863 1189; Add 1359 1359 1189; Mul 1119 721 1119; Mul 1243 862 1243;
  Add 1119 1119 1243; Mul 1693 722 1693; Mul 1529 859 1529; Add 1693 1693 1529; Add 1119 1119 1693;
  Add 1359 1359 1119; Add 1459 1459 1359; Mul 1624 725 1624; Mul 1263 861 1263; Add 1624 1624 1263;
  Mul 1589 731 1589; Mul 1052 865 1052; Add 1589 1589 1052; Mul 1282 727 1282; Mul 1617 871 1617;
  Add 1282 1282 1617; Add 1589 1589 1282; Add 1624 1624 1589; Mul 1365 310 1365; Mul 1231 868 1231;
  Add 1365 1365 1231; Mul 1668 327 1668; Mul 1662 866 1662; Add 1668 1668 1662; Mul 1248 318 1248;
  Mul 1111 849 1111; Add 1248 1248 1111; Add 1668 1668 1248; Add 1365 1365 1668; Add 1624 1624 1365;
  Sub 1459 1459 1624; Mul 1459 4 1459; Mul 1157 869 1157; Add 1459 1459 1157; Add 1646 1646 1459;
  Mul 1592 820 1592; Mul 1620 736 1620; Add 1592 1592 1620; Mul 1200 822 1200; Mul 1456 741 1456;
  Add 1200 1200 1456; Mul 1647 788 1647; Mul 1490 738 1490; Add 1647 1647 1490; Add 1200 1200 1647;
  Add 1592 1592 1200; Mul 1524 817 1524; Mul 1338 358 1338; Add 1524 1524 1338; Mul 1678 814 1678;
  Mul 1274 372 1274; Add 1678 1678 1274; Mul 1674 732 1674; Mul 1340 369 1340; Add 1674 1674 1340;
  Add 1678 1678 1674; Add 1524 1524 1678; Sub 1592 1592 1524; Mul 1592 5 1592; Mul 1077 870 1077;
  Add 1592 1592 1077; Add 1646 1646 1592; Sub 1429 1429 1646; Mul 1646 754 1429; Add 1591 1591 1646;
  Add 1148 1148 1591; Mul 1591 210 1508; Mul 1646 200 1560; Add 1591 1591 1646].
Definition casadi_f0_290 : list instruction := [
  Mul 1020 19 1020; Mul 1646 196 1048; Sub 1020 1020 1646; Mul 1646 189 1426; Mul 1612 35 1612;
  Sub 1646 1646 1612; Sub 1020 1020 1646; Mul 1470 55 1470; Mul 1657 62 1657; Add 1470 1470 1657;
  Add 1020 1020 1470; Mul 1083 86 1083; Mul 1307 91 1307; Add 1083 1083 1307; Add 1083 1020 1083;
  Mul 1136 102 1136; Sub 1136 1083 1136; Mul 1307 777 1136; Mul 1470 209 1487; Add 1307 1307 1470;
  Add 1591 1591 1307; Mul 1307 778 1083; Mul 1470 867 1505; Add 1307 1307 1470; Add 1591 1591 1307;
  Mul 1307 769 1020; Mul 1470 855 1482; Add 1307 1307 1470; Add 1591 1591 1307; Mul 1307 761 1374;
  Mul 1470 201 1135; Add 1307 1307 1470; Sub 1591 1591 1307; Mul 1307 873 1074; Add 1591 1591 1307;
  Mul 1307 1006 1591; Mul 1470 210 1591; Mul 1657 756 1560; Add 1470 1470 1657; Sub 1508 1508 1470;
  Mul 1470 881 1508; Mul 1657 210 1198; Mul 1646 143 1560; Add 1657 1657 1646; Sub 1158 1158 1349;
  Sub 1226 1226 1037; Mul 1226 37 1226; Add 1158 1158 1226; Sub 1174 1174 1683; Mul 1174 80 1174;
  Add 1174 1158 1174; Sub 1217 1217 1578; Mul 1217 100 1217; Add 1217 1174 1217; Mul 1053 1064 1053;
  Mul 1439 1061 1439; Add 1053 1053 1439; Mul 1053 141 1053; Add 1217 1217 1053; Mul 1053 777 1217;
  Mul 1439 876 1487; Add 1053 1053 1439; Add 1657 1657 1053; Mul 1685 151 1685; Mul 1145 103 1145;
  Add 1685 1685 1145; Mul 1385 148 1385; Mul 1638 105 1638; Add 1385 1385 1638; Sub 1685 1685 1385;
  Sub 1685 1685 1174; Mul 1265 102 1265; Sub 1265 1685 1265; Mul 1174 778 1265; Mul 1385 153 1505;
  Add 1174 1174 1385; Sub 1657 1657 1174; Mul 1611 1057 1611; Mul 1247 1065 1247; Sub 1611 1611 1247;
  Mul 1611 156 1611; Add 1158 1158 1611; Mul 1290 86 1290; Mul 1676 91 1676; Sub 1290 1290 1676;
  Add 1290 1158 1290; Mul 1186 102 1186; Sub 1186 1290 1186; Mul 1676 769 1186; Mul 1611 171 1482;
  Add 1676 1676 1611; Add 1657 1657 1676; Mul 1426 180 1426; Mul 1126 35 1126; Add 1426 1426 1126;
  Mul 1531 19 1531; Mul 1048 182 1048; Sub 1531 1531 1048; Sub 1426 1426 1531; Mul 1521 55 1521;
  Add 1426 1426 1521; Mul 1024 86 1024; Mul 1344 91 1344; Add 1024 1024 1344; Add 1024 1426 1024;
  Mul 1159 102 1159; Sub 1159 1024 1159; Mul 1344 761 1159; Mul 1521 188 1135; Add 1344 1344 1521;
  Add 1657 1657 1344; Mul 1344 754 1136; Mul 1521 209 1074; Add 1344 1344 1521; Add 1657 1657 1344;
  Mul 1344 210 1657; Mul 1521 875 1560; Add 1344 1344 1521; Sub 1198 1198 1344; Div 1344 1198 65;
  Mul 1198 89 1198; Mul 1521 777 1657; Mul 1531 875 1487; Add 1521 1521 1531; Sub 1217 1217 1521;
  Mul 1521 58 1217; Add 1198 1198 1521; Mul 1521 778 1657; Mul 1531 875 1505; Add 1521 1521 1531;
  Add 1521 1265 1521; Mul 1531 45 1521; Add 1198 1198 1531; Mul 1531 769 1657; Mul 1048 875 1482;
  Add 1531 1531 1048; Sub 1531 1186 1531; Mul 1048 22 1531; Add 1198 1198 1048; Mul 1048 761 1657;
  Mul 1126 875 1135; Add 1048 1048 1126; Sub 1048 1159 1048; Mul 1126 879 1048; Add 1198 1198 1126;
  Mul 1126 754 1657; Mul 1676 875 1074; Add 1126 1126 1676; Sub 1126 1136 1126].
Definition casadi_f0_291 : list instruction := [
  Mul 1676 880 1126; Add 1198 1198 1676; Div 1198 1198 1045; Mul 1676 1078 1198; Sub 1344 1344 1676;
  Mul 1676 874 1344; Add 1470 1470 1676; Mul 1676 777 1591; Mul 1611 756 1487; Add 1676 1676 1611;
  Sub 1136 1136 1676; Mul 1676 884 1136; Div 1217 1217 65; Mul 1611 1029 1198; Sub 1217 1217 1611;
  Mul 1611 883 1217; Add 1676 1676 1611; Add 1470 1470 1676; Mul 1676 778 1591; Mul 1611 756 1505;
  Add 1676 1676 1611; Sub 1676 1676 1083; Mul 1611 886 1676; Div 1521 1521 65; Mul 1247 1063 1198;
  Sub 1521 1521 1247; Mul 1247 885 1521; Add 1611 1611 1247; Add 1470 1470 1611; Mul 1611 769 1591;
  Mul 1247 756 1482; Add 1611 1611 1247; Sub 1611 1020 1611; Mul 1247 888 1611; Div 1531 1531 65;
  Mul 1174 1040 1198; Sub 1531 1531 1174; Mul 1174 887 1531; Add 1247 1247 1174; Add 1470 1470 1247;
  Mul 1247 761 1591; Mul 1174 756 1135; Add 1247 1247 1174; Add 1247 1374 1247; Mul 1174 890 1247;
  Div 1048 1048 65; Mul 1385 1027 1198; Sub 1048 1048 1385; Mul 1385 889 1048; Add 1174 1174 1385;
  Sub 1470 1470 1174; Div 1126 1126 65; Mul 1174 1046 1198; Sub 1126 1126 1174; Mul 1174 891 1126;
  Mul 1591 754 1591; Mul 1385 756 1074; Add 1591 1591 1385; Mul 1385 892 1591; Sub 1174 1174 1385;
  Add 1470 1470 1174; Mul 1174 881 1470; Mul 1385 882 1344; Add 1174 1174 1385; Sub 1508 1508 1174;
  Mul 1174 884 1470; Mul 1385 882 1217; Add 1174 1174 1385; Sub 1136 1136 1174; Mul 1174 910 1136;
  Mul 1385 777 1265; Mul 1638 153 1487; Add 1385 1385 1638; Mul 1638 210 1049; Mul 1145 154 1560;
  Add 1638 1638 1145; Sub 1385 1385 1638; Mul 1638 778 1685; Mul 1145 106 1505; Add 1638 1638 1145;
  Add 1385 1385 1638; Mul 1638 769 1290; Mul 1145 877 1482; Add 1638 1638 1145; Sub 1385 1385 1638;
  Mul 1638 761 1024; Mul 1145 94 1135; Add 1638 1638 1145; Sub 1385 1385 1638; Mul 1638 754 1083;
  Mul 1145 867 1074; Add 1638 1638 1145; Sub 1385 1385 1638; Mul 1638 777 1385; Mul 1145 895 1487;
  Add 1638 1638 1145; Sub 1265 1265 1638; Mul 1638 884 1265; Mul 1145 896 1217; Add 1638 1638 1145;
  Mul 1145 210 1385; Mul 1053 895 1560; Add 1145 1145 1053; Add 1049 1049 1145; Mul 1145 881 1049;
  Mul 1053 898 1344; Add 1145 1145 1053; Sub 1638 1638 1145; Mul 1145 778 1385; Mul 1053 895 1505;
  Add 1145 1145 1053; Sub 1145 1145 1685; Mul 1685 886 1145; Mul 1053 899 1521; Add 1685 1685 1053;
  Add 1638 1638 1685; Mul 1685 769 1385; Mul 1053 895 1482; Add 1685 1685 1053; Add 1685 1290 1685;
  Mul 1053 888 1685; Mul 1439 900 1531; Add 1053 1053 1439; Sub 1638 1638 1053; Mul 1053 761 1385;
  Mul 1439 895 1135; Add 1053 1053 1439; Add 1053 1024 1053; Mul 1439 890 1053; Mul 1578 901 1048;
  Add 1439 1439 1578; Sub 1638 1638 1439; Mul 1439 754 1385; Mul 1578 895 1074; Add 1439 1439 1578;
  Add 1083 1083 1439; Mul 1439 892 1083; Mul 1578 902 1126; Add 1439 1439 1578; Sub 1638 1638 1439;
  Mul 1439 884 1638; Mul 1578 897 1217; Add 1439 1439 1578; Sub 1265 1265 1439; Div 1439 1265 905;
  Mul 1578 881 1638; Mul 1683 897 1344; Add 1578 1578 1683; Add 1049 1049 1578].
Definition casadi_f0_292 : list instruction := [
  Mul 1578 904 1049; Mul 1265 903 1265; Add 1578 1578 1265; Mul 1265 886 1638; Mul 1683 897 1521;
  Add 1265 1265 1683; Sub 1145 1145 1265; Mul 1265 906 1145; Add 1578 1578 1265; Mul 1265 888 1638;
  Mul 1683 897 1531; Add 1265 1265 1683; Add 1685 1685 1265; Mul 1265 907 1685; Add 1578 1578 1265;
  Mul 1265 890 1638; Mul 1683 897 1048; Add 1265 1265 1683; Add 1053 1053 1265; Mul 1265 908 1053;
  Add 1578 1578 1265; Mul 1265 892 1638; Mul 1683 897 1126; Add 1265 1265 1683; Add 1083 1083 1265;
  Mul 1265 909 1083; Add 1578 1578 1265; Div 1578 1578 1067; Mul 1265 1214 1578; Sub 1439 1439 1265;
  Mul 1265 894 1439; Add 1174 1174 1265; Mul 1265 912 1508; Div 1049 1049 905; Mul 1683 1614 1578;
  Sub 1049 1049 1683; Mul 1683 893 1049; Add 1265 1265 1683; Sub 1174 1174 1265; Mul 1265 886 1470;
  Mul 1683 882 1521; Add 1265 1265 1683; Sub 1676 1676 1265; Mul 1265 914 1676; Div 1145 1145 905;
  Mul 1683 1273 1578; Sub 1145 1145 1683; Mul 1683 913 1145; Add 1265 1265 1683; Add 1174 1174 1265;
  Mul 1265 888 1470; Mul 1683 882 1531; Add 1265 1265 1683; Sub 1611 1611 1265; Mul 1265 916 1611;
  Div 1685 1685 905; Mul 1683 1260 1578; Sub 1685 1685 1683; Mul 1683 915 1685; Add 1265 1265 1683;
  Sub 1174 1174 1265; Mul 1265 890 1470; Mul 1683 882 1048; Add 1265 1265 1683; Add 1247 1247 1265;
  Mul 1265 918 1247; Div 1053 1053 905; Mul 1683 1249 1578; Sub 1053 1053 1683; Mul 1683 917 1053;
  Add 1265 1265 1683; Add 1174 1174 1265; Div 1083 1083 905; Mul 1265 1569 1578; Sub 1083 1083 1265;
  Mul 1265 919 1083; Mul 1683 892 1470; Mul 1226 882 1126; Add 1683 1683 1226; Add 1591 1591 1683;
  Mul 1683 920 1591; Sub 1265 1265 1683; Sub 1174 1174 1265; Mul 1265 912 1174; Mul 1683 911 1049;
  Add 1265 1265 1683; Add 1508 1508 1265; Mul 1265 944 1508; Mul 1683 210 1028; Mul 1226 168 1560;
  Add 1683 1683 1226; Mul 1226 777 1186; Mul 1037 171 1487; Add 1226 1226 1037; Add 1683 1683 1226;
  Mul 1226 778 1290; Mul 1037 877 1505; Add 1226 1226 1037; Add 1683 1683 1226; Mul 1226 769 1158;
  Mul 1037 878 1482; Add 1226 1226 1037; Add 1683 1683 1226; Mul 1226 761 1426; Mul 1037 98 1135;
  Add 1226 1226 1037; Add 1683 1683 1226; Mul 1226 754 1020; Mul 1037 855 1074; Add 1226 1226 1037;
  Add 1683 1683 1226; Mul 1226 210 1683; Mul 1037 922 1560; Add 1226 1226 1037; Sub 1028 1028 1226;
  Mul 1226 881 1028; Mul 1037 923 1344; Add 1226 1226 1037; Mul 1037 777 1683; Mul 1349 922 1487;
  Add 1037 1037 1349; Sub 1186 1186 1037; Mul 1037 884 1186; Mul 1349 925 1217; Add 1037 1037 1349;
  Add 1226 1226 1037; Mul 1037 778 1683; Mul 1349 922 1505; Add 1037 1037 1349; Sub 1037 1037 1290;
  Mul 1290 886 1037; Mul 1349 926 1521; Add 1290 1290 1349; Add 1226 1226 1290; Mul 1290 769 1683;
  Mul 1349 922 1482; Add 1290 1290 1349; Sub 1158 1158 1290; Mul 1290 888 1158; Mul 1349 927 1531;
  Add 1290 1290 1349; Add 1226 1226 1290; Mul 1290 761 1683; Mul 1349 922 1135; Add 1290 1290 1349;
  Sub 1290 1426 1290; Mul 1349 890 1290; Mul 1646 928 1048; Add 1349 1349 1646].
Definition casadi_f0_293 : list instruction := [
  Add 1226 1226 1349; Mul 1349 754 1683; Mul 1646 922 1074; Add 1349 1349 1646; Sub 1020 1020 1349;
  Mul 1349 892 1020; Mul 1646 929 1126; Add 1349 1349 1646; Add 1226 1226 1349; Mul 1349 881 1226;
  Mul 1646 924 1344; Add 1349 1349 1646; Sub 1028 1028 1349; Mul 1349 884 1226; Mul 1646 924 1217;
  Add 1349 1349 1646; Sub 1186 1186 1349; Mul 1349 910 1186; Mul 1646 931 1439; Add 1349 1349 1646;
  Mul 1646 912 1028; Mul 1612 930 1049; Add 1646 1646 1612; Sub 1349 1349 1646; Mul 1646 886 1226;
  Mul 1612 924 1521; Add 1646 1646 1612; Sub 1037 1037 1646; Mul 1646 914 1037; Mul 1612 933 1145;
  Add 1646 1646 1612; Add 1349 1349 1646; Mul 1646 888 1226; Mul 1612 924 1531; Add 1646 1646 1612;
  Sub 1158 1158 1646; Mul 1646 916 1158; Mul 1612 934 1685; Add 1646 1646 1612; Sub 1349 1349 1646;
  Mul 1646 890 1226; Mul 1612 924 1048; Add 1646 1646 1612; Sub 1290 1290 1646; Mul 1646 918 1290;
  Mul 1612 935 1053; Add 1646 1646 1612; Sub 1349 1349 1646; Mul 1646 892 1226; Mul 1612 924 1126;
  Add 1646 1646 1612; Sub 1020 1020 1646; Mul 1646 920 1020; Mul 1612 936 1083; Add 1646 1646 1612;
  Sub 1349 1349 1646; Mul 1646 912 1349; Mul 1612 932 1049; Add 1646 1646 1612; Add 1028 1028 1646;
  Div 1646 1028 938; Mul 1028 937 1028; Mul 1612 910 1349; Mul 1592 932 1439; Add 1612 1612 1592;
  Sub 1186 1186 1612; Mul 1612 939 1186; Add 1028 1028 1612; Mul 1612 914 1349; Mul 1592 932 1145;
  Add 1612 1612 1592; Sub 1037 1037 1612; Mul 1612 940 1037; Add 1028 1028 1612; Mul 1612 916 1349;
  Mul 1592 932 1685; Add 1612 1612 1592; Add 1158 1158 1612; Mul 1612 941 1158; Add 1028 1028 1612;
  Mul 1612 918 1349; Mul 1592 932 1053; Add 1612 1612 1592; Add 1290 1290 1612; Mul 1612 942 1290;
  Add 1028 1028 1612; Mul 1612 920 1349; Mul 1592 932 1083; Add 1612 1612 1592; Add 1020 1020 1612;
  Mul 1612 943 1020; Add 1028 1028 1612; Div 1028 1028 1615; Mul 1612 1446 1028; Sub 1646 1646 1612;
  Mul 1612 921 1646; Add 1265 1265 1612; Mul 1612 910 1174; Mul 1592 911 1439; Add 1612 1612 1592;
  Sub 1136 1136 1612; Mul 1612 947 1136; Div 1186 1186 938; Mul 1592 1184 1028; Sub 1186 1186 1592;
  Mul 1592 946 1186; Add 1612 1612 1592; Add 1265 1265 1612; Mul 1612 914 1174; Mul 1592 911 1145;
  Add 1612 1612 1592; Sub 1676 1676 1612; Mul 1612 949 1676; Div 1037 1037 938; Mul 1592 1160 1028;
  Sub 1037 1037 1592; Mul 1592 948 1037; Add 1612 1612 1592; Add 1265 1265 1612; Mul 1612 916 1174;
  Mul 1592 911 1685; Add 1612 1612 1592; Add 1611 1611 1612; Mul 1612 951 1611; Div 1158 1158 938;
  Mul 1592 1328 1028; Sub 1158 1158 1592; Mul 1592 950 1158; Add 1612 1612 1592; Add 1265 1265 1612;
  Mul 1612 918 1174; Mul 1592 911 1053; Add 1612 1612 1592; Sub 1612 1612 1247; Mul 1247 953 1612;
  Div 1290 1290 938; Mul 1592 1155 1028; Sub 1290 1290 1592; Mul 1592 952 1290; Add 1247 1247 1592;
  Add 1265 1265 1247; Mul 1247 920 1174; Mul 1592 911 1083; Add 1247 1247 1592; Sub 1247 1247 1591;
  Mul 1591 955 1247; Div 1020 1020 938; Mul 1592 1220 1028; Sub 1020 1020 1592].
Definition casadi_f0_294 : list instruction := [
  Mul 1592 954 1020; Add 1591 1591 1592; Add 1265 1265 1591; Mul 1591 944 1265; Mul 1592 945 1646;
  Add 1591 1591 1592; Sub 1508 1508 1591; Mul 1591 986 1508; Mul 1592 210 1035; Mul 1077 175 1560;
  Add 1592 1592 1077; Mul 1077 777 1159; Mul 1524 188 1487; Add 1077 1077 1524; Add 1592 1592 1077;
  Mul 1077 778 1024; Mul 1524 94 1505; Add 1077 1077 1524; Add 1592 1592 1077; Mul 1077 769 1426;
  Mul 1524 98 1482; Add 1077 1077 1524; Add 1592 1592 1077; Mul 1077 761 1632; Mul 1524 172 1135;
  Add 1077 1077 1524; Sub 1592 1592 1077; Mul 1077 754 1374; Mul 1524 201 1074; Add 1077 1077 1524;
  Sub 1592 1592 1077; Mul 1077 210 1592; Mul 1560 957 1560; Add 1077 1077 1560; Sub 1035 1035 1077;
  Mul 1077 881 1035; Mul 1560 958 1344; Add 1077 1077 1560; Mul 1560 777 1592; Mul 1487 957 1487;
  Add 1560 1560 1487; Sub 1159 1159 1560; Mul 1560 884 1159; Mul 1487 960 1217; Add 1560 1560 1487;
  Add 1077 1077 1560; Mul 1560 778 1592; Mul 1505 957 1505; Add 1560 1560 1505; Sub 1560 1560 1024;
  Mul 1024 886 1560; Mul 1505 961 1521; Add 1024 1024 1505; Add 1077 1077 1024; Mul 1024 769 1592;
  Mul 1482 957 1482; Add 1024 1024 1482; Sub 1426 1426 1024; Mul 1024 888 1426; Mul 1482 962 1531;
  Add 1024 1024 1482; Add 1077 1077 1024; Mul 1024 761 1592; Mul 1135 957 1135; Add 1024 1024 1135;
  Add 1632 1632 1024; Mul 1024 890 1632; Mul 1135 963 1048; Add 1024 1024 1135; Sub 1077 1077 1024;
  Mul 1024 754 1592; Mul 1074 957 1074; Add 1024 1024 1074; Add 1374 1374 1024; Mul 1024 892 1374;
  Mul 1074 964 1126; Add 1024 1024 1074; Sub 1077 1077 1024; Mul 1024 881 1077; Mul 1074 959 1344;
  Add 1024 1024 1074; Sub 1035 1035 1024; Mul 1024 884 1077; Mul 1074 959 1217; Add 1024 1024 1074;
  Sub 1159 1159 1024; Mul 1024 910 1159; Mul 1074 966 1439; Add 1024 1024 1074; Mul 1074 912 1035;
  Mul 1135 965 1049; Add 1074 1074 1135; Sub 1024 1024 1074; Mul 1074 886 1077; Mul 1135 959 1521;
  Add 1074 1074 1135; Sub 1560 1560 1074; Mul 1074 914 1560; Mul 1135 968 1145; Add 1074 1074 1135;
  Add 1024 1024 1074; Mul 1074 888 1077; Mul 1135 959 1531; Add 1074 1074 1135; Sub 1426 1426 1074;
  Mul 1074 916 1426; Mul 1135 969 1685; Add 1074 1074 1135; Sub 1024 1024 1074; Mul 1074 890 1077;
  Mul 1135 959 1048; Add 1074 1074 1135; Add 1632 1632 1074; Mul 1074 918 1632; Mul 1135 970 1053;
  Add 1074 1074 1135; Add 1024 1024 1074; Mul 1074 892 1077; Mul 1135 959 1126; Add 1074 1074 1135;
  Add 1374 1374 1074; Mul 1074 920 1374; Mul 1135 971 1083; Add 1074 1074 1135; Add 1024 1024 1074;
  Mul 1074 912 1024; Mul 1135 967 1049; Add 1074 1074 1135; Add 1035 1035 1074; Mul 1074 944 1035;
  Mul 1135 972 1646; Add 1074 1074 1135; Mul 1135 910 1024; Mul 1482 967 1439; Add 1135 1135 1482;
  Sub 1159 1159 1135; Mul 1135 947 1159; Mul 1482 974 1186; Add 1135 1135 1482; Add 1074 1074 1135;
  Mul 1135 914 1024; Mul 1482 967 1145; Add 1135 1135 1482; Sub 1560 1560 1135; Mul 1135 949 1560;
  Mul 1482 975 1037; Add 1135 1135 1482; Add 1074 1074 1135; Mul 1135 916 1024].
Definition casadi_f0_295 : list instruction := [
  Mul 1482 967 1685; Add 1135 1135 1482; Add 1426 1426 1135; Mul 1135 951 1426; Mul 1482 976 1158;
  Add 1135 1135 1482; Add 1074 1074 1135; Mul 1135 918 1024; Mul 1482 967 1053; Add 1135 1135 1482;
  Sub 1135 1135 1632; Mul 1632 953 1135; Mul 1482 977 1290; Add 1632 1632 1482; Add 1074 1074 1632;
  Mul 1632 920 1024; Mul 1482 967 1083; Add 1632 1632 1482; Sub 1632 1632 1374; Mul 1374 955 1632;
  Mul 1482 978 1020; Add 1374 1374 1482; Add 1074 1074 1374; Mul 1374 944 1074; Mul 1482 973 1646;
  Add 1374 1374 1482; Sub 1035 1035 1374; Div 1374 1035 980; Mul 1035 979 1035; Mul 1482 947 1074;
  Mul 1505 973 1186; Add 1482 1482 1505; Sub 1159 1159 1482; Mul 1482 981 1159; Add 1035 1035 1482;
  Mul 1482 949 1074; Mul 1505 973 1037; Add 1482 1482 1505; Sub 1560 1560 1482; Mul 1482 982 1560;
  Add 1035 1035 1482; Mul 1482 951 1074; Mul 1505 973 1158; Add 1482 1482 1505; Sub 1426 1426 1482;
  Mul 1482 983 1426; Add 1035 1035 1482; Mul 1482 953 1074; Mul 1505 973 1290; Add 1482 1482 1505;
  Sub 1135 1135 1482; Mul 1482 984 1135; Add 1035 1035 1482; Mul 1482 955 1074; Mul 1505 973 1020;
  Add 1482 1482 1505; Sub 1632 1632 1482; Mul 1482 985 1632; Add 1035 1035 1482; Div 1035 1035 1630;
  Mul 1482 1629 1035; Sub 1374 1374 1482; Mul 1482 956 1374; Add 1591 1591 1482; Mul 1482 947 1265;
  Mul 1505 945 1186; Add 1482 1482 1505; Sub 1136 1136 1482; Mul 1482 989 1136; Div 1159 1159 980;
  Mul 1505 1262 1035; Sub 1159 1159 1505; Mul 1505 988 1159; Add 1482 1482 1505; Add 1591 1591 1482;
  Mul 1482 949 1265; Mul 1505 945 1037; Add 1482 1482 1505; Sub 1676 1676 1482; Mul 1482 991 1676;
  Div 1560 1560 980; Mul 1505 1306 1035; Sub 1560 1560 1505; Mul 1505 990 1560; Add 1482 1482 1505;
  Add 1591 1591 1482; Mul 1482 951 1265; Mul 1505 945 1158; Add 1482 1482 1505; Sub 1611 1611 1482;
  Mul 1482 993 1611; Div 1426 1426 980; Mul 1505 1626 1035; Sub 1426 1426 1505; Mul 1505 992 1426;
  Add 1482 1482 1505; Add 1591 1591 1482; Mul 1482 953 1265; Mul 1505 945 1290; Add 1482 1482 1505;
  Sub 1612 1612 1482; Mul 1482 995 1612; Div 1135 1135 980; Mul 1505 1530 1035; Sub 1135 1135 1505;
  Mul 1505 994 1135; Add 1482 1482 1505; Add 1591 1591 1482; Mul 1482 955 1265; Mul 1505 945 1020;
  Add 1482 1482 1505; Sub 1247 1247 1482; Mul 1482 997 1247; Div 1632 1632 980; Mul 1505 1472 1035;
  Sub 1632 1632 1505; Mul 1505 996 1632; Add 1482 1482 1505; Add 1591 1591 1482; Mul 1482 986 1591;
  Mul 1505 987 1374; Add 1482 1482 1505; Sub 1508 1508 1482; Div 1482 1508 999; Mul 1508 998 1508;
  Mul 1505 989 1591; Mul 1487 987 1159; Add 1505 1505 1487; Sub 1136 1136 1505; Mul 1505 1000 1136;
  Add 1508 1508 1505; Mul 1505 991 1591; Mul 1487 987 1560; Add 1505 1505 1487; Sub 1676 1676 1505;
  Mul 1505 1001 1676; Add 1508 1508 1505; Mul 1505 993 1591; Mul 1487 987 1426; Add 1505 1505 1487;
  Sub 1611 1611 1505; Mul 1505 1002 1611; Add 1508 1508 1505; Mul 1505 995 1591; Mul 1487 987 1135;
  Add 1505 1505 1487; Sub 1612 1612 1505; Mul 1505 1003 1612; Add 1508 1508 1505].
Definition casadi_f0_296 : list instruction := [
  Mul 1505 997 1591; Mul 1487 987 1632; Add 1505 1505 1487; Sub 1247 1247 1505; Mul 1505 1004 1247;
  Add 1508 1508 1505; Div 1508 1508 1095; Mul 1505 1596 1508; Sub 1482 1482 1505; Mul 1482 211 1482;
  Mul 1505 1005 1408; Sub 1482 1482 1505; Div 1136 1136 999; Mul 1505 1331 1508; Sub 1136 1136 1505;
  Mul 1136 779 1136; Mul 1505 1007 1418; Sub 1136 1136 1505; Add 1482 1482 1136; Div 1676 1676 999;
  Mul 1136 1080 1508; Sub 1676 1676 1136; Mul 1676 767 1676; Mul 1136 1008 1462; Add 1676 1676 1136;
  Add 1482 1482 1676; Div 1611 1611 999; Mul 1676 1056 1508; Sub 1611 1611 1676; Mul 1611 775 1611;
  Mul 1676 1009 1392; Sub 1611 1611 1676; Add 1482 1482 1611; Div 1612 1612 999; Mul 1611 1068 1508;
  Sub 1612 1612 1611; Mul 1612 815 1612; Mul 1611 1010 1207; Add 1612 1612 1611; Add 1482 1482 1612;
  Div 1247 1247 999; Mul 1612 1178 1508; Sub 1247 1247 1612; Mul 1247 833 1247; Mul 1612 1011 1429;
  Add 1247 1247 1612; Add 1482 1482 1247; Div 1482 1482 999; Mul 1508 1033 1508; Sub 1482 1482 1508;
  Mul 1508 756 1482; Add 1307 1307 1508; Sub 1148 1148 1307; Mul 1592 1012 1592; Mul 1374 211 1374;
  Mul 1307 986 1408; Sub 1374 1374 1307; Mul 1159 779 1159; Mul 1307 989 1418; Sub 1159 1159 1307;
  Add 1374 1374 1159; Mul 1560 767 1560; Mul 1159 991 1462; Add 1560 1560 1159; Add 1374 1374 1560;
  Mul 1426 775 1426; Mul 1560 993 1392; Sub 1426 1426 1560; Add 1374 1374 1426; Mul 1135 815 1135;
  Mul 1426 995 1207; Add 1135 1135 1426; Add 1374 1374 1135; Mul 1632 833 1632; Mul 1135 997 1429;
  Add 1632 1632 1135; Add 1374 1374 1632; Mul 1591 1006 1591; Mul 1632 987 1482; Add 1591 1591 1632;
  Sub 1374 1374 1591; Div 1374 1374 980; Mul 1035 1534 1035; Sub 1374 1374 1035; Mul 1035 957 1374;
  Add 1592 1592 1035; Sub 1148 1148 1592; Mul 1683 1013 1683; Mul 1646 211 1646; Mul 1592 944 1408;
  Sub 1646 1646 1592; Mul 1186 779 1186; Mul 1592 947 1418; Sub 1186 1186 1592; Add 1646 1646 1186;
  Mul 1037 767 1037; Mul 1186 949 1462; Add 1037 1037 1186; Add 1646 1646 1037; Mul 1158 775 1158;
  Mul 1037 951 1392; Sub 1158 1158 1037; Add 1646 1646 1158; Mul 1290 815 1290; Mul 1158 953 1207;
  Add 1290 1290 1158; Add 1646 1646 1290; Mul 1020 833 1020; Mul 1290 955 1429; Add 1020 1020 1290;
  Add 1646 1646 1020; Mul 1265 1006 1265; Mul 1020 945 1482; Add 1265 1265 1020; Sub 1646 1646 1265;
  Mul 1074 1012 1074; Mul 1265 973 1374; Add 1074 1074 1265; Sub 1646 1646 1074; Div 1646 1646 938;
  Mul 1028 1397 1028; Sub 1646 1646 1028; Mul 1028 922 1646; Add 1683 1683 1028; Sub 1148 1148 1683;
  Mul 1385 1014 1385; Mul 1439 779 1439; Mul 1683 910 1418; Sub 1439 1439 1683; Mul 1049 211 1049;
  Mul 1683 912 1408; Sub 1049 1049 1683; Sub 1439 1439 1049; Mul 1145 767 1145; Mul 1049 914 1462;
  Add 1145 1145 1049; Add 1439 1439 1145; Mul 1685 775 1685; Mul 1145 916 1392; Sub 1685 1685 1145;
  Sub 1439 1439 1685; Mul 1053 815 1053; Mul 1685 918 1207; Add 1053 1053 1685; Sub 1439 1439 1053;
  Mul 1083 833 1083; Mul 1053 920 1429; Add 1083 1083 1053; Sub 1439 1439 1083].
Definition casadi_f0_297 : list instruction := [
  Mul 1174 1006 1174; Mul 1083 911 1482; Add 1174 1174 1083; Sub 1439 1439 1174; Mul 1024 1012 1024;
  Mul 1174 967 1374; Add 1024 1024 1174; Sub 1439 1439 1024; Mul 1349 1013 1349; Mul 1024 932 1646;
  Add 1349 1349 1024; Sub 1439 1439 1349; Div 1439 1439 905; Mul 1578 1553 1578; Sub 1439 1439 1578;
  Mul 1578 895 1439; Add 1385 1385 1578; Sub 1148 1148 1385; Mul 1657 1015 1657; Mul 1344 211 1344;
  Mul 1408 881 1408; Sub 1344 1344 1408; Mul 1217 779 1217; Mul 1418 884 1418; Sub 1217 1217 1418;
  Add 1344 1344 1217; Mul 1521 767 1521; Mul 1462 886 1462; Add 1521 1521 1462; Add 1344 1344 1521;
  Mul 1531 775 1531; Mul 1392 888 1392; Sub 1531 1531 1392; Add 1344 1344 1531; Mul 1048 815 1048;
  Mul 1207 890 1207; Add 1048 1048 1207; Add 1344 1344 1048; Mul 1126 833 1126; Mul 1429 892 1429;
  Add 1126 1126 1429; Add 1344 1344 1126; Mul 1470 1006 1470; Mul 1126 882 1482; Add 1470 1470 1126;
  Sub 1344 1344 1470; Mul 1077 1012 1077; Mul 1470 959 1374; Add 1077 1077 1470; Sub 1344 1344 1077;
  Mul 1226 1013 1226; Mul 1077 924 1646; Add 1226 1226 1077; Sub 1344 1344 1226; Mul 1638 1014 1638;
  Mul 1226 897 1439; Add 1638 1638 1226; Sub 1344 1344 1638; Div 1344 1344 65; Mul 1198 1623 1198;
  Sub 1344 1344 1198; Mul 1198 875 1344; Add 1657 1657 1198; Sub 1148 1148 1657; Div 1148 1148 92;
  Mul 1211 759 1211; Sub 1148 1148 1211; Out 1 54 1148; Out 1 55 1344; Out 1 56 1439; Out 1 57 1646;
  Out 1 58 1374; Out 1 59 1482; Arg 1482 1 66; Out 1 60 1482; Arg 1374 1 67; Out 1 61 1374; Arg 1646 1 68;
  Out 1 62 1646; Arg 1439 1 69; Out 1 63 1439; Arg 1344 1 70; Out 1 64 1344; Arg 1148 1 71; Out 1 65 1148;
  Arg 1211 1 62; Mul 1657 8 1211; Mul 1198 10 1657; Arg 1638 1 65; Mul 1226 16 1638; Mul 1077 21 1226;
  Mul 1638 15 1638; Mul 1470 18 1638; Mul 1126 14 1226; Add 1470 1470 1126; Mul 1126 15 1470;
  Sub 1077 1077 1126; Mul 1126 18 1226; Mul 1429 14 1638; Sub 1126 1126 1429; Mul 1126 16 1126;
  Mul 1429 17 1638; Sub 1126 1126 1429; Sub 1429 1077 1126; Mul 1048 28 1638; Mul 1207 26 1226;
  Add 1048 1048 1207; Mul 1207 1031 1048; Mul 1531 28 1226; Mul 1392 26 1638; Sub 1531 1531 1392;
  Mul 1392 29 1531; Sub 1521 1207 1392; Mul 1521 20 1521; Add 1429 1429 1521; Mul 1392 20 1392;
  Add 1077 1077 1392; Add 1429 1429 1077; Mul 1207 20 1207; Add 1126 1126 1207; Add 1126 1126 1077;
  Add 1207 1429 1126; Mul 1126 19 1126; Arg 1392 1 64; Mul 1521 35 1392; Mul 1462 30 1521; Sub 1126 1126 1462;
  Mul 1392 19 1392; Mul 1462 41 1392; Mul 1217 42 1226; Mul 1418 40 1638; Sub 1217 1217 1418; Mul 1418 43 1226;
  Sub 1217 1217 1418; Mul 1418 44 1531; Add 1217 1217 1418; Mul 1418 35 1217; Add 1462 1462 1418;
  Sub 1126 1126 1462; Mul 1462 19 1126; Mul 1418 38 1521; Sub 1462 1462 1418; Mul 1217 19 1217;
  Mul 1418 41 1521; Sub 1217 1217 1418; Mul 1418 12 1392; Mul 1429 35 1429; Add 1418 1418 1429;
  Sub 1217 1217 1418].
Definition casadi_f0_298 : list instruction := [
  Mul 1418 35 1217; Mul 1429 46 1392; Add 1418 1418 1429; Sub 1462 1462 1418; Sub 1207 1207 1462;
  Sub 1207 1207 1077; Mul 1418 50 1048; Mul 1429 1039 1418; Mul 1408 50 1531; Mul 1385 19 1408;
  Mul 1578 49 1521; Sub 1385 1385 1578; Mul 1578 51 1392; Sub 1385 1385 1578; Mul 1578 1041 1385;
  Sub 1349 1429 1578; Mul 1349 37 1349; Add 1207 1207 1349; Mul 1349 49 1392; Mul 1024 35 1408;
  Add 1349 1349 1024; Mul 1024 51 1521; Sub 1349 1349 1024; Mul 1024 64 1349; Add 1578 1024 1578;
  Mul 1578 37 1578; Add 1578 1077 1578; Add 1207 1207 1578; Mul 1174 43 1638; Mul 1083 42 1638;
  Mul 1053 40 1226; Add 1083 1083 1053; Sub 1174 1174 1083; Mul 1083 44 1048; Sub 1174 1174 1083;
  Mul 1083 67 1174; Mul 1053 19 1083; Mul 1685 71 1521; Sub 1053 1053 1685; Mul 1685 75 1392; Mul 1470 16 1470;
  Mul 1145 21 1638; Add 1470 1470 1145; Mul 1048 74 1048; Mul 1531 20 1531; Mul 1531 34 1531;
  Sub 1048 1048 1531; Add 1470 1470 1048; Add 1048 1470 1470; Mul 1531 35 1048; Sub 1685 1685 1531;
  Add 1053 1053 1685; Mul 1685 73 1392; Mul 1531 35 1470; Sub 1685 1685 1531; Mul 1531 19 1174;
  Mul 1145 70 1521; Sub 1531 1531 1145; Add 1685 1685 1531; Sub 1053 1053 1685; Mul 1685 76 1418;
  Mul 1531 37 1349; Mul 1145 57 1531; Sub 1685 1685 1145; Sub 1053 1053 1685; Mul 1685 67 1053;
  Mul 1685 66 1685; Arg 1145 1 63; Mul 1049 53 1145; Mul 1683 77 1049; Sub 1685 1685 1683; Mul 1145 66 1145;
  Mul 1683 11 1145; Mul 1028 53 1207; Add 1683 1683 1028; Sub 1685 1685 1683; Mul 1683 53 1685;
  Mul 1028 78 1145; Add 1683 1683 1028; Add 1207 1207 1683; Sub 1207 1207 1578; Mul 1028 87 1049;
  Mul 1074 83 1418; Mul 1265 66 1074; Add 1028 1028 1265; Mul 1265 88 1145; Mul 1349 83 1349; Mul 1020 53 1349;
  Add 1265 1265 1020; Add 1028 1028 1265; Mul 1265 1054 1028; Mul 1020 83 1385; Mul 1290 1058 1020;
  Sub 1158 1265 1290; Mul 1158 80 1158; Add 1207 1207 1158; Add 1578 1578 1683; Mul 1683 66 1349;
  Mul 1158 88 1049; Sub 1683 1683 1158; Mul 1158 87 1145; Mul 1037 53 1074; Sub 1158 1158 1037;
  Add 1683 1683 1158; Mul 1158 93 1683; Add 1290 1158 1290; Mul 1290 80 1290; Add 1578 1578 1290;
  Add 1207 1207 1578; Mul 1290 9 1207; Add 1198 1198 1290; Mul 1685 66 1685; Mul 1290 78 1049;
  Sub 1685 1685 1290; Sub 1685 1685 1053; Mul 1053 72 1028; Mul 1290 80 1683; Mul 1037 63 1290;
  Sub 1053 1053 1037; Sub 1685 1685 1053; Mul 1053 67 1685; Mul 1053 8 1053; Mul 1211 9 1211; Mul 1037 97 1211;
  Sub 1053 1053 1037; Add 1198 1198 1053; Mul 1053 9 1198; Mul 1037 84 1657; Add 1053 1053 1037;
  Sub 1037 1053 1578; Mul 1683 104 1683; Mul 1186 8 1683; Mul 1592 103 1211; Sub 1186 1186 1592;
  Mul 1592 105 1657; Mul 1035 104 1028; Mul 1591 9 1035; Sub 1592 1592 1591; Sub 1186 1186 1592;
  Mul 1592 33 1186; Mul 1591 104 1020; Mul 1632 1066 1591; Add 1135 1592 1632; Mul 1135 100 1135;
  Sub 1037 1037 1135; Mul 1198 8 1198; Mul 1135 84 1211; Sub 1198 1198 1135; Sub 1198 1198 1685].
Definition casadi_f0_299 : list instruction := [
  Mul 1685 103 1657; Mul 1135 9 1683; Add 1685 1685 1135; Mul 1135 105 1211; Mul 1426 8 1035;
  Add 1135 1135 1426; Sub 1685 1685 1135; Mul 1135 96 1685; Mul 1426 100 1186; Mul 1560 117 1426;
  Sub 1135 1135 1560; Add 1198 1198 1135; Mul 1198 67 1198; Mul 1198 114 1198; Arg 1135 1 61; Mul 1560 113 1135;
  Mul 1159 116 1560; Sub 1198 1198 1159; Mul 1135 114 1135; Mul 1159 119 1135; Sub 1207 1207 1053;
  Sub 1207 1207 1578; Mul 1578 1044 1685; Sub 1632 1578 1632; Mul 1632 100 1632; Add 1207 1207 1632;
  Sub 1207 1207 1037; Mul 1207 113 1207; Add 1159 1159 1207; Sub 1198 1198 1159; Mul 1198 113 1198;
  Mul 1159 118 1135; Add 1198 1198 1159; Sub 1037 1037 1198; Mul 1186 120 1186; Mul 1198 114 1186;
  Mul 1159 60 1560; Sub 1198 1198 1159; Mul 1159 121 1135; Mul 1207 120 1685; Mul 1632 113 1207;
  Add 1159 1159 1632; Add 1198 1198 1159; Mul 1159 112 1198; Mul 1632 120 1591; Mul 1053 123 1632;
  Add 1159 1159 1053; Mul 1159 99 1159; Sub 1037 1037 1159; Mul 1198 125 1198; Mul 1198 110 1198;
  Mul 1159 125 1632; Mul 1159 126 1159; Add 1198 1198 1159; Mul 1198 122 1198; Add 1037 1037 1198;
  Div 1198 1037 92; Mul 1037 6 1037; Mul 1159 130 1657; Mul 1217 19 1217; Mul 1053 46 1521; Sub 1217 1217 1053;
  Mul 1126 35 1126; Mul 1053 38 1392; Add 1126 1126 1053; Add 1217 1217 1126; Mul 1531 52 1531;
  Mul 1126 76 1385; Add 1531 1531 1126; Add 1217 1217 1531; Mul 1531 66 1217; Mul 1126 129 1049;
  Sub 1531 1531 1126; Mul 1126 132 1145; Mul 1053 70 1392; Mul 1307 35 1174; Add 1053 1053 1307;
  Mul 1307 73 1521; Mul 1508 19 1470; Add 1307 1307 1508; Add 1053 1053 1307; Mul 1048 19 1048;
  Mul 1307 75 1521; Add 1048 1048 1307; Mul 1083 35 1083; Mul 1307 71 1392; Add 1083 1083 1307;
  Add 1048 1048 1083; Sub 1053 1053 1048; Mul 1048 133 1418; Mul 1385 37 1385; Mul 1385 57 1385;
  Sub 1048 1048 1385; Sub 1053 1053 1048; Mul 1048 53 1053; Add 1126 1126 1048; Add 1531 1531 1126;
  Mul 1290 27 1290; Mul 1126 72 1020; Add 1290 1290 1126; Add 1531 1531 1290; Mul 1290 9 1531;
  Add 1159 1159 1290; Add 1290 1053 1053; Mul 1290 66 1290; Mul 1126 136 1049; Sub 1290 1290 1126;
  Mul 1126 129 1145; Mul 1048 53 1217; Add 1126 1126 1048; Sub 1290 1290 1126; Mul 1126 66 1053;
  Mul 1048 132 1049; Sub 1126 1126 1048; Sub 1290 1290 1126; Mul 1028 138 1028; Mul 1126 80 1020;
  Mul 1126 63 1126; Sub 1028 1028 1126; Sub 1290 1290 1028; Add 1028 1290 1290; Mul 1028 8 1028;
  Mul 1126 139 1211; Sub 1028 1028 1126; Add 1159 1159 1028; Mul 1028 8 1290; Mul 1126 137 1211;
  Sub 1028 1028 1126; Sub 1159 1159 1028; Mul 1685 140 1685; Mul 1028 100 1591; Mul 1028 117 1028;
  Sub 1685 1685 1028; Add 1159 1159 1685; Mul 1685 141 1632; Mul 1685 121 1685; Mul 1028 142 1207;
  Add 1685 1685 1028; Sub 1159 1159 1685; Mul 1159 114 1159; Mul 1685 134 1560; Sub 1159 1159 1685;
  Mul 1685 145 1135; Mul 1028 8 1531; Mul 1126 130 1211; Sub 1028 1028 1126; Mul 1126 137 1657; Mul 1048 9 1290;
  Add 1126 1126 1048].
Definition casadi_f0_300 : list instruction := [
  Sub 1028 1028 1126; Mul 1426 111 1426; Mul 1126 96 1591; Add 1426 1426 1126; Add 1028 1028 1426;
  Mul 1426 141 1186; Mul 1426 124 1426; Mul 1632 146 1632; Add 1426 1426 1632; Sub 1028 1028 1426;
  Mul 1028 113 1028; Add 1685 1685 1028; Sub 1159 1159 1685; Mul 1685 1073 1159; Add 1037 1037 1685;
  Mul 1685 150 1135; Mul 1028 149 1657; Mul 1426 148 1591; Mul 1632 147 1035; Mul 1126 109 1632;
  Sub 1426 1426 1126; Add 1290 1290 1426; Mul 1426 9 1290; Add 1028 1028 1426; Mul 1591 151 1591;
  Mul 1426 147 1683; Mul 1126 109 1426; Add 1591 1591 1126; Add 1531 1531 1591; Mul 1591 8 1531;
  Mul 1126 152 1211; Sub 1591 1591 1126; Sub 1028 1028 1591; Mul 1591 148 1657; Mul 1126 9 1632;
  Sub 1591 1591 1126; Mul 1126 8 1426; Mul 1048 151 1211; Sub 1126 1126 1048; Sub 1591 1591 1126;
  Mul 1126 108 1591; Add 1028 1028 1126; Mul 1028 113 1028; Add 1685 1685 1028; Mul 1028 152 1657;
  Mul 1531 9 1531; Add 1028 1028 1531; Mul 1290 8 1290; Mul 1531 149 1211; Sub 1290 1290 1531;
  Add 1028 1028 1290; Mul 1290 151 1657; Mul 1531 9 1426; Add 1290 1290 1531; Mul 1531 148 1211;
  Mul 1126 8 1632; Add 1531 1531 1126; Sub 1290 1290 1531; Mul 1290 108 1290; Add 1028 1028 1290;
  Mul 1028 114 1028; Mul 1290 155 1560; Sub 1028 1028 1290; Add 1685 1685 1028; Mul 1028 1050 1685;
  Add 1037 1037 1028; Mul 1028 159 1657; Mul 1290 156 1349; Mul 1290 82 1290; Mul 1531 157 1020;
  Add 1290 1290 1531; Sub 1217 1217 1290; Mul 1290 66 1217; Mul 1531 158 1049; Sub 1290 1290 1531;
  Mul 1531 161 1145; Mul 1020 156 1020; Mul 1020 87 1020; Mul 1126 160 1074; Sub 1020 1020 1126;
  Sub 1053 1053 1020; Mul 1020 53 1053; Add 1531 1531 1020; Add 1290 1290 1531; Mul 1531 9 1290;
  Add 1028 1028 1531; Mul 1053 66 1053; Mul 1531 161 1049; Sub 1053 1053 1531; Mul 1531 158 1145;
  Mul 1217 53 1217; Add 1531 1531 1217; Sub 1053 1053 1531; Mul 1531 8 1053; Mul 1217 163 1211;
  Sub 1531 1531 1217; Add 1028 1028 1531; Mul 1531 167 1145; Mul 1217 166 1349; Mul 1020 53 1217;
  Add 1531 1531 1020; Mul 1020 164 1049; Mul 1126 156 1074; Mul 1048 66 1126; Add 1020 1020 1048;
  Sub 1531 1531 1020; Mul 1020 8 1531; Mul 1048 165 1211; Sub 1020 1020 1048; Mul 1048 169 1657;
  Mul 1217 66 1217; Mul 1385 167 1049; Sub 1217 1217 1385; Mul 1385 164 1145; Mul 1126 53 1126;
  Sub 1385 1385 1126; Sub 1217 1217 1385; Mul 1385 9 1217; Add 1048 1048 1385; Sub 1020 1020 1048;
  Mul 1020 108 1020; Sub 1028 1028 1020; Mul 1028 114 1028; Mul 1020 162 1560; Sub 1028 1028 1020;
  Mul 1020 170 1135; Mul 1290 8 1290; Mul 1048 159 1211; Sub 1290 1290 1048; Mul 1048 163 1657; Mul 1053 9 1053;
  Add 1048 1048 1053; Sub 1290 1290 1048; Mul 1048 165 1657; Mul 1053 9 1531; Add 1048 1048 1053;
  Mul 1053 8 1217; Mul 1385 169 1211; Sub 1053 1053 1385; Add 1048 1048 1053; Mul 1053 108 1048;
  Add 1290 1290 1053; Mul 1290 113 1290; Add 1020 1020 1290; Sub 1028 1028 1020; Mul 1020 1070 1028;
  Add 1037 1037 1020; Mul 1020 179 1657; Mul 1290 177 1145].
Definition casadi_f0_301 : list instruction := [
  Mul 1053 174 1408; Mul 1408 173 1408; Mul 1385 49 1408; Add 1053 1053 1385; Add 1053 1053 1077;
  Mul 1385 174 1392; Mul 1126 35 1408; Add 1385 1385 1126; Mul 1126 176 1521; Sub 1385 1385 1126;
  Mul 1126 62 1385; Mul 1083 176 1392; Mul 1307 19 1408; Mul 1508 174 1521; Sub 1307 1307 1508;
  Sub 1083 1083 1307; Mul 1307 48 1083; Sub 1126 1126 1307; Add 1126 1053 1126; Mul 1307 53 1126;
  Add 1290 1290 1307; Mul 1307 176 1418; Sub 1174 1174 1307; Mul 1307 19 1174; Mul 1508 180 1521;
  Sub 1307 1307 1508; Mul 1508 182 1392; Mul 1408 56 1408; Mul 1418 174 1418; Sub 1408 1408 1418;
  Sub 1408 1408 1470; Mul 1470 35 1408; Add 1508 1508 1470; Add 1307 1307 1508; Mul 1508 55 1385;
  Add 1307 1307 1508; Mul 1508 66 1307; Mul 1470 181 1049; Sub 1508 1508 1470; Sub 1290 1290 1508;
  Mul 1508 86 1385; Sub 1290 1290 1508; Mul 1508 9 1290; Add 1020 1020 1508; Mul 1508 181 1145;
  Mul 1307 53 1307; Add 1508 1508 1307; Mul 1126 66 1126; Mul 1307 177 1049; Sub 1126 1126 1307;
  Add 1508 1508 1126; Mul 1126 91 1385; Add 1508 1508 1126; Mul 1126 8 1508; Mul 1307 184 1211;
  Sub 1126 1126 1307; Add 1020 1020 1126; Mul 1385 102 1385; Mul 1126 66 1083; Mul 1307 178 1049;
  Sub 1126 1126 1307; Mul 1307 8 1126; Mul 1470 185 1211; Sub 1307 1307 1470; Mul 1470 187 1657;
  Mul 1418 178 1145; Mul 1247 53 1083; Add 1418 1418 1247; Mul 1247 9 1418; Add 1470 1470 1247;
  Add 1307 1307 1470; Mul 1307 108 1307; Sub 1385 1385 1307; Add 1020 1020 1385; Mul 1020 114 1020;
  Mul 1385 183 1560; Sub 1020 1020 1385; Mul 1385 186 1135; Mul 1290 8 1290; Mul 1307 179 1211;
  Sub 1290 1290 1307; Mul 1307 184 1657; Mul 1508 9 1508; Add 1307 1307 1508; Sub 1290 1290 1307;
  Mul 1307 185 1657; Mul 1508 9 1126; Add 1307 1307 1508; Mul 1508 8 1418; Mul 1470 187 1211;
  Sub 1508 1508 1470; Sub 1307 1307 1508; Mul 1508 108 1307; Add 1290 1290 1508; Mul 1290 113 1290;
  Add 1385 1385 1290; Sub 1020 1020 1385; Mul 1385 1059 1020; Add 1037 1037 1385; Mul 1385 199 1657;
  Mul 1290 196 1392; Mul 1508 197 1226; Mul 1470 195 1638; Sub 1508 1508 1470; Mul 1470 190 1638;
  Mul 1247 192 1226; Add 1470 1470 1247; Mul 1247 198 1470; Add 1508 1508 1247; Mul 1247 35 1508;
  Add 1290 1290 1247; Mul 1247 189 1521; Mul 1612 25 1470; Mul 1611 190 1226; Mul 1676 192 1638;
  Sub 1611 1611 1676; Mul 1676 32 1611; Add 1612 1612 1676; Mul 1676 19 1612; Add 1247 1247 1676;
  Sub 1290 1290 1247; Mul 1247 48 1470; Mul 1676 19 1611; Mul 1136 194 1521; Sub 1676 1676 1136;
  Mul 1136 55 1676; Add 1247 1247 1136; Sub 1290 1290 1247; Mul 1247 66 1290; Mul 1136 193 1049;
  Sub 1247 1247 1136; Mul 1136 202 1145; Mul 1505 198 1611; Mul 1487 197 1638; Mul 1524 195 1226;
  Add 1487 1487 1524; Sub 1505 1505 1487; Mul 1487 62 1676; Mul 1524 194 1392; Mul 1611 35 1611;
  Add 1524 1524 1611; Mul 1611 48 1524; Sub 1487 1487 1611; Add 1487 1505 1487; Mul 1611 53 1487;
  Add 1136 1136 1611; Add 1247 1247 1136; Mul 1136 86 1676; Sub 1247 1247 1136].
Definition casadi_f0_302 : list instruction := [
  Mul 1136 9 1247; Add 1385 1385 1136; Mul 1487 66 1487; Mul 1136 202 1049; Sub 1487 1487 1136;
  Mul 1136 193 1145; Mul 1290 53 1290; Add 1136 1136 1290; Sub 1487 1487 1136; Mul 1136 91 1676;
  Add 1487 1487 1136; Mul 1136 8 1487; Mul 1290 205 1211; Sub 1136 1136 1290; Add 1385 1385 1136;
  Mul 1676 102 1676; Mul 1136 66 1524; Mul 1290 203 1049; Sub 1136 1136 1290; Mul 1290 191 1145;
  Mul 1611 53 1470; Sub 1290 1290 1611; Add 1136 1136 1290; Mul 1290 8 1136; Mul 1611 206 1211;
  Sub 1290 1290 1611; Mul 1611 208 1657; Mul 1678 191 1049; Mul 1674 66 1470; Add 1678 1678 1674;
  Mul 1674 203 1145; Mul 1340 53 1524; Add 1674 1674 1340; Add 1678 1678 1674; Mul 1674 9 1678;
  Sub 1611 1611 1674; Sub 1290 1290 1611; Mul 1290 108 1290; Sub 1676 1676 1290; Add 1385 1385 1676;
  Mul 1385 114 1385; Mul 1676 204 1560; Sub 1385 1385 1676; Mul 1676 207 1135; Mul 1247 8 1247;
  Mul 1290 199 1211; Sub 1247 1247 1290; Mul 1290 205 1657; Mul 1487 9 1487; Add 1290 1290 1487;
  Sub 1247 1247 1290; Mul 1290 206 1657; Mul 1487 9 1136; Add 1290 1290 1487; Mul 1487 208 1211;
  Mul 1611 8 1678; Add 1487 1487 1611; Sub 1290 1290 1487; Mul 1487 108 1290; Add 1247 1247 1487;
  Mul 1247 113 1247; Add 1676 1676 1247; Sub 1385 1385 1676; Mul 1676 1043 1385; Add 1037 1037 1676;
  Div 1037 1037 1085; Mul 1676 1072 1037; Sub 1198 1198 1676; Mul 1676 211 1198; Mul 1247 216 1135;
  Arg 1487 1 60; Mul 1611 215 1487; Mul 1674 113 1611; Sub 1247 1247 1674; Mul 1674 218 1247; Mul 1340 114 1482;
  Mul 1274 0 1560; Sub 1340 1340 1274; Mul 1274 217 1340; Add 1674 1674 1274; Mul 1487 216 1487;
  Mul 1274 1 1487; Mul 1338 215 1374; Add 1274 1274 1338; Sub 1674 1674 1274; Mul 1274 0 1135;
  Mul 1338 113 1482; Add 1274 1274 1338; Mul 1338 220 1274; Mul 1200 114 1611; Mul 1647 216 1560;
  Add 1200 1200 1647; Mul 1647 221 1200; Sub 1338 1338 1647; Sub 1674 1674 1338; Mul 1338 214 1674;
  Mul 1647 213 1338; Mul 1647 212 1647; Mul 1490 225 1647; Mul 1456 114 1487; Mul 1620 215 1560;
  Sub 1456 1456 1620; Mul 1620 101 1456; Mul 1459 107 1611; Sub 1620 1620 1459; Mul 1459 223 1620;
  Add 1157 1490 1459; Mul 1624 216 1374; Mul 1365 1 1611; Sub 1624 1624 1365; Mul 1365 113 1487;
  Mul 1668 215 1135; Add 1365 1365 1668; Mul 1668 218 1365; Mul 1248 228 1340; Add 1668 1668 1248;
  Add 1624 1624 1668; Mul 1668 221 1456; Mul 1248 224 1274; Add 1668 1668 1248; Sub 1624 1624 1668;
  Mul 1668 214 1624; Mul 1248 213 1668; Mul 1248 212 1248; Mul 1111 231 1248; Mul 1662 101 1200;
  Mul 1231 107 1487; Add 1662 1662 1231; Mul 1231 230 1662; Sub 1111 1111 1231; Sub 1231 1157 1111;
  Add 1459 1459 1490; Sub 1111 1459 1111; Add 1490 1231 1111; Mul 1589 144 1135; Mul 1282 215 1589;
  Mul 1617 240 1487; Add 1282 1282 1617; Mul 1617 236 1560; Mul 1052 238 1135; Add 1617 1617 1052;
  Mul 1052 220 1617; Mul 1263 237 1200; Add 1052 1052 1263; Sub 1282 1282 1052; Mul 1052 115 1611;
  Add 1282 1282 1052; Mul 1052 212 1662; Mul 1263 242 1052].
Definition casadi_f0_303 : list instruction := [
  Mul 1359 101 1135; Mul 1119 241 1359; Add 1263 1263 1119; Add 1263 1282 1263; Mul 1119 244 1263;
  Mul 1693 213 1624; Mul 1529 243 1693; Add 1243 1119 1529; Mul 1189 237 1456; Mul 1564 224 1617;
  Sub 1189 1189 1564; Mul 1589 216 1589; Mul 1564 240 1611; Sub 1589 1589 1564; Sub 1189 1189 1589;
  Mul 1589 115 1487; Sub 1189 1189 1589; Mul 1589 212 1620; Mul 1589 242 1589; Mul 1564 247 1359;
  Sub 1589 1589 1564; Sub 1589 1189 1589; Mul 1564 249 1589; Mul 1075 213 1674; Mul 1600 248 1075;
  Add 1460 1564 1600; Sub 1701 1243 1460; Sub 1490 1490 1701; Add 1600 1600 1564; Add 1529 1529 1119;
  Sub 1119 1600 1529; Add 1490 1490 1119; Mul 1119 9 1247; Mul 1564 217 1657; Add 1119 1119 1564;
  Mul 1564 8 1200; Mul 1701 220 1211; Add 1564 1564 1701; Sub 1119 1119 1564; Mul 1564 254 1119;
  Mul 1701 218 1657; Mul 1199 9 1340; Add 1701 1701 1199; Mul 1199 8 1274; Mul 1567 221 1211;
  Sub 1199 1199 1567; Sub 1701 1701 1199; Mul 1199 253 1701; Add 1564 1564 1199; Mul 1247 8 1247;
  Mul 1199 217 1211; Sub 1247 1247 1199; Mul 1199 220 1657; Mul 1567 9 1200; Sub 1199 1199 1567;
  Sub 1247 1247 1199; Mul 1199 257 1247; Mul 1567 221 1657; Mul 1032 9 1274; Add 1567 1567 1032;
  Mul 1032 8 1340; Mul 1413 218 1211; Sub 1032 1032 1413; Add 1567 1567 1032; Mul 1032 256 1567;
  Add 1199 1199 1032; Mul 1032 259 1487; Sub 1413 1374 1646; Mul 1538 215 1413; Add 1032 1032 1538;
  Sub 1199 1199 1032; Add 1564 1564 1199; Mul 1199 213 1564; Mul 1032 276 1199; Mul 1538 114 1657;
  Mul 1518 9 1560; Sub 1538 1538 1518; Mul 1518 8 1135; Mul 1640 113 1211; Sub 1518 1518 1640;
  Sub 1538 1538 1518; Mul 1518 260 1538; Mul 1640 9 1135; Mul 1609 113 1657; Add 1640 1640 1609;
  Mul 1609 8 1560; Mul 1152 114 1211; Add 1609 1609 1152; Sub 1640 1640 1609; Mul 1609 263 1640;
  Add 1518 1518 1609; Mul 1609 265 1518; Mul 1152 8 1456; Mul 1650 224 1211; Sub 1152 1152 1650;
  Mul 1650 9 1365; Mul 1474 228 1657; Add 1650 1650 1474; Add 1152 1152 1650; Mul 1650 262 1152;
  Add 1609 1609 1650; Mul 1650 127 1538; Mul 1474 268 1640; Add 1650 1650 1474; Mul 1474 216 1650;
  Mul 1228 267 1611; Sub 1474 1474 1228; Add 1609 1609 1474; Mul 1474 135 1119; Mul 1228 95 1487;
  Add 1474 1474 1228; Sub 1609 1609 1474; Mul 1474 102 1456; Mul 1228 108 1611; Sub 1474 1474 1228;
  Mul 1228 79 1152; Mul 1167 8 1365; Mul 1141 228 1211; Sub 1167 1167 1141; Mul 1141 9 1456; Mul 1382 224 1657;
  Add 1141 1141 1382; Sub 1167 1167 1141; Mul 1141 85 1167; Mul 1382 81 1611; Sub 1141 1141 1382;
  Add 1228 1228 1141; Add 1228 1474 1228; Mul 1141 269 1228; Mul 1141 275 1141; Mul 1382 79 1538;
  Mul 1509 85 1640; Add 1382 1382 1509; Mul 1509 102 1135; Sub 1382 1382 1509; Mul 1287 272 1382;
  Add 1141 1141 1287; Sub 1141 1609 1141; Mul 1287 258 1141; Add 1370 1032 1287; Mul 1150 254 1152;
  Mul 1016 265 1701; Add 1150 1150 1016; Mul 1016 216 1413; Mul 1369 259 1611; Sub 1016 1016 1369;
  Mul 1369 257 1167; Mul 1137 273 1567; Add 1369 1369 1137].
Definition casadi_f0_304 : list instruction := [
  Add 1016 1016 1369; Add 1150 1150 1016; Mul 1016 213 1150; Mul 1369 284 1016; Mul 1137 253 1518;
  Mul 1129 262 1119; Add 1137 1137 1129; Mul 1650 215 1650; Mul 1129 267 1487; Add 1650 1650 1129;
  Sub 1137 1137 1650; Mul 1650 95 1611; Mul 1129 135 1152; Add 1650 1650 1129; Add 1137 1137 1650;
  Mul 1650 79 1119; Mul 1129 85 1247; Mul 1583 81 1487; Sub 1129 1129 1583; Add 1650 1650 1129;
  Mul 1129 102 1200; Mul 1583 108 1487; Add 1129 1129 1583; Sub 1650 1650 1129; Mul 1583 269 1650;
  Mul 1316 275 1583; Mul 1661 283 1382; Add 1316 1316 1661; Sub 1316 1137 1316; Mul 1661 279 1316;
  Add 1179 1369 1661; Sub 1451 1370 1179; Mul 1411 292 1382; Mul 1665 288 1640; Mul 1272 287 1657;
  Mul 1315 108 1340; Mul 1132 9 1315; Add 1272 1272 1132; Mul 1132 102 1374; Mul 1454 108 1274;
  Add 1132 1132 1454; Mul 1454 8 1132; Mul 1452 289 1211; Sub 1454 1454 1452; Sub 1272 1272 1454;
  Mul 1454 264 1272; Add 1665 1665 1454; Mul 1454 291 1538; Mul 1315 8 1315; Mul 1452 287 1211;
  Sub 1315 1315 1452; Mul 1452 289 1657; Mul 1132 9 1132; Add 1452 1452 1132; Add 1315 1315 1452;
  Mul 1452 261 1315; Add 1454 1454 1452; Sub 1665 1665 1454; Mul 1454 281 1150; Mul 1452 278 1129;
  Sub 1454 1454 1452; Mul 1452 255 1474; Mul 1132 270 1564; Add 1452 1452 1132; Sub 1454 1454 1452;
  Add 1665 1665 1454; Mul 1454 213 1665; Mul 1454 269 1454; Mul 1452 275 1454; Add 1132 1411 1452;
  Mul 1082 288 1247; Mul 1590 256 1272; Add 1082 1082 1590; Mul 1590 295 1487; Mul 1252 102 1340;
  Mul 1169 215 1252; Add 1590 1590 1169; Sub 1082 1082 1590; Mul 1590 291 1119; Mul 1169 253 1315;
  Add 1590 1590 1169; Sub 1082 1082 1590; Mul 1590 296 1474; Mul 1169 254 1538; Mul 1330 261 1701;
  Add 1169 1169 1330; Mul 1330 257 1640; Mul 1175 264 1567; Add 1330 1330 1175; Add 1169 1169 1330;
  Mul 1330 270 1169; Add 1590 1590 1330; Mul 1330 274 1150; Mul 1175 278 1509; Sub 1330 1330 1175;
  Sub 1590 1590 1330; Add 1082 1082 1590; Mul 1590 213 1082; Mul 1590 269 1590; Mul 1330 282 1590;
  Mul 1175 297 1650; Add 1168 1330 1175; Mul 1672 216 1252; Mul 1060 295 1611; Sub 1672 1672 1060;
  Mul 1060 288 1167; Mul 1266 273 1272; Add 1060 1060 1266; Add 1672 1672 1060; Mul 1060 291 1152;
  Mul 1266 265 1315; Add 1060 1060 1266; Sub 1672 1672 1060; Mul 1060 274 1564; Mul 1266 255 1509;
  Sub 1060 1060 1266; Mul 1266 281 1169; Mul 1309 296 1129; Sub 1266 1266 1309; Sub 1060 1060 1266;
  Add 1672 1672 1060; Mul 1060 213 1672; Mul 1060 269 1060; Mul 1266 271 1060; Mul 1309 300 1228;
  Add 1367 1266 1309; Add 1452 1452 1411; Add 1411 1367 1452; Add 1168 1168 1411; Sub 1565 1132 1168;
  Add 1175 1175 1330; Add 1309 1309 1266; Add 1132 1309 1132; Add 1175 1175 1132; Sub 1452 1452 1175;
  Add 1565 1565 1452; Add 1661 1661 1369; Add 1287 1287 1032; Sub 1032 1661 1287; Add 1565 1565 1032;
  Sub 1451 1451 1565; Mul 1565 66 1119; Mul 1032 253 1049; Sub 1565 1565 1032; Mul 1032 53 1247;
  Mul 1369 256 1145; Add 1032 1032 1369; Sub 1565 1565 1032; Mul 1032 308 1565].
Definition casadi_f0_305 : list instruction := [
  Mul 1369 66 1701; Mul 1452 254 1049; Sub 1369 1369 1452; Mul 1452 257 1145; Mul 1266 53 1567;
  Add 1452 1452 1266; Sub 1369 1369 1452; Mul 1452 304 1369; Add 1032 1032 1452; Mul 1452 53 1119;
  Mul 1266 253 1145; Add 1452 1452 1266; Mul 1266 66 1247; Mul 1330 256 1049; Sub 1266 1266 1330;
  Add 1452 1452 1266; Mul 1266 311 1452; Mul 1330 254 1145; Mul 1388 53 1701; Add 1330 1330 1388;
  Mul 1388 66 1567; Mul 1681 257 1049; Sub 1388 1388 1681; Add 1330 1330 1388; Mul 1388 310 1330;
  Add 1266 1266 1388; Mul 1388 313 1487; Add 1681 1439 1413; Mul 1233 215 1681; Add 1388 1388 1233;
  Sub 1266 1266 1388; Add 1032 1032 1266; Mul 1266 213 1032; Mul 1388 330 1266; Mul 1233 66 1538;
  Mul 1103 261 1049; Sub 1233 1233 1103; Mul 1103 53 1640; Mul 1526 264 1145; Add 1103 1103 1526;
  Sub 1233 1233 1103; Mul 1103 314 1233; Mul 1526 53 1538; Mul 1394 261 1145; Add 1526 1526 1394;
  Mul 1394 66 1640; Mul 1102 264 1049; Sub 1394 1394 1102; Add 1526 1526 1394; Mul 1394 317 1526;
  Add 1103 1103 1394; Mul 1394 319 1103; Mul 1102 66 1152; Mul 1289 265 1049; Sub 1102 1102 1289;
  Mul 1289 53 1167; Mul 1130 273 1145; Add 1289 1289 1130; Sub 1102 1102 1289; Mul 1289 316 1102;
  Add 1394 1394 1289; Mul 1289 128 1233; Mul 1130 322 1526; Add 1289 1289 1130; Mul 1130 216 1289;
  Mul 1400 321 1611; Sub 1130 1130 1400; Add 1394 1394 1130; Mul 1130 131 1565; Mul 1400 68 1487;
  Add 1130 1130 1400; Sub 1394 1394 1130; Mul 1130 91 1152; Mul 1400 86 1167; Add 1130 1130 1400;
  Add 1130 1474 1130; Mul 1400 61 1102; Mul 1147 53 1152; Mul 1549 265 1145; Add 1147 1147 1549;
  Mul 1549 66 1167; Mul 1208 273 1049; Sub 1549 1549 1208; Add 1147 1147 1549; Mul 1549 54 1147;
  Mul 1208 47 1611; Sub 1549 1549 1208; Add 1400 1400 1549; Add 1400 1130 1400; Mul 1549 323 1400;
  Mul 1549 329 1549; Mul 1208 91 1538; Mul 1640 86 1640; Add 1208 1208 1640; Sub 1208 1208 1509;
  Mul 1640 61 1233; Mul 1018 54 1526; Add 1640 1640 1018; Add 1640 1208 1640; Mul 1018 326 1640;
  Add 1549 1549 1018; Sub 1549 1394 1549; Mul 1018 312 1549; Add 1635 1388 1018; Mul 1360 308 1102;
  Mul 1523 319 1369; Add 1360 1360 1523; Mul 1523 216 1681; Mul 1450 313 1611; Sub 1523 1523 1450;
  Mul 1450 311 1147; Mul 1545 327 1330; Add 1450 1450 1545; Add 1523 1523 1450; Add 1360 1360 1523;
  Mul 1523 213 1360; Mul 1450 338 1523; Mul 1545 304 1103; Mul 1238 316 1565; Add 1545 1545 1238;
  Mul 1289 215 1289; Mul 1238 321 1487; Add 1289 1289 1238; Sub 1545 1545 1289; Mul 1289 68 1611;
  Mul 1238 131 1102; Add 1289 1289 1238; Add 1545 1545 1289; Mul 1289 91 1119; Mul 1247 86 1247;
  Add 1289 1289 1247; Sub 1289 1289 1129; Mul 1247 61 1565; Mul 1238 54 1452; Mul 1172 47 1487;
  Sub 1238 1238 1172; Add 1247 1247 1238; Add 1247 1289 1247; Mul 1238 323 1247; Mul 1172 329 1238;
  Mul 1320 337 1640; Add 1172 1172 1320; Sub 1172 1545 1172; Mul 1320 333 1172; Add 1236 1450 1320;
  Sub 1257 1635 1236; Mul 1618 346 1640; Mul 1691 342 1233; Mul 1375 86 1413].
Definition casadi_f0_306 : list instruction := [
  Sub 1375 1375 1315; Mul 1315 66 1375; Mul 1499 341 1049; Sub 1315 1315 1499; Mul 1499 343 1145;
  Mul 1413 91 1413; Sub 1272 1272 1413; Mul 1413 53 1272; Add 1499 1499 1413; Sub 1315 1315 1499;
  Mul 1499 315 1315; Add 1691 1691 1499; Mul 1499 345 1526; Mul 1413 341 1145; Mul 1375 53 1375;
  Add 1413 1413 1375; Mul 1272 66 1272; Mul 1375 343 1049; Sub 1272 1272 1375; Add 1413 1413 1272;
  Mul 1272 318 1413; Add 1499 1499 1272; Add 1691 1691 1499; Mul 1499 332 1289; Mul 1272 335 1360;
  Add 1499 1499 1272; Mul 1272 309 1130; Mul 1375 324 1032; Add 1272 1272 1375; Sub 1499 1499 1272;
  Add 1691 1691 1499; Mul 1499 213 1691; Mul 1499 323 1499; Mul 1272 329 1499; Add 1375 1618 1272;
  Mul 1121 342 1565; Mul 1563 304 1315; Add 1121 1121 1563; Mul 1563 345 1452; Mul 1091 310 1413;
  Add 1563 1563 1091; Mul 1091 350 1487; Mul 1701 86 1701; Mul 1567 91 1567; Sub 1701 1701 1567;
  Sub 1252 1252 1701; Mul 1701 215 1252; Add 1091 1091 1701; Sub 1563 1563 1091; Add 1121 1121 1563;
  Mul 1563 349 1130; Mul 1091 308 1233; Mul 1701 315 1369; Add 1091 1091 1701; Mul 1701 311 1526;
  Mul 1567 318 1330; Add 1701 1701 1567; Add 1091 1091 1701; Mul 1701 324 1091; Add 1563 1563 1701;
  Mul 1701 332 1208; Mul 1567 328 1360; Add 1701 1701 1567; Sub 1563 1563 1701; Add 1121 1121 1563;
  Mul 1563 213 1121; Mul 1563 323 1563; Mul 1701 336 1563; Mul 1567 351 1247; Add 1444 1701 1567;
  Mul 1134 342 1102; Mul 1383 319 1315; Add 1134 1134 1383; Mul 1383 216 1252; Mul 1221 350 1611;
  Sub 1383 1383 1221; Mul 1221 345 1147; Mul 1187 327 1413; Add 1221 1221 1187; Add 1383 1383 1221;
  Add 1134 1134 1383; Mul 1383 309 1208; Mul 1221 328 1032; Add 1383 1383 1221; Mul 1221 349 1289;
  Mul 1187 335 1091; Add 1221 1221 1187; Sub 1383 1383 1221; Add 1134 1134 1383; Mul 1383 213 1134;
  Mul 1383 323 1383; Mul 1221 325 1383; Mul 1187 354 1400; Add 1409 1221 1187; Add 1272 1272 1618;
  Add 1618 1409 1272; Add 1444 1444 1618; Sub 1594 1375 1444; Add 1567 1567 1701; Add 1187 1187 1221;
  Add 1375 1187 1375; Add 1567 1567 1375; Sub 1272 1272 1567; Add 1594 1594 1272; Add 1320 1320 1450;
  Add 1018 1018 1388; Sub 1388 1320 1018; Add 1594 1594 1388; Sub 1257 1257 1594; Mul 1594 19 1565;
  Mul 1388 304 1521; Sub 1594 1594 1388; Mul 1388 35 1487; Mul 1450 215 1392; Add 1388 1388 1450;
  Add 1594 1594 1388; Mul 1388 362 1594; Mul 1450 19 1369; Mul 1272 308 1521; Sub 1450 1450 1272;
  Mul 1272 313 1392; Mul 1221 35 1681; Add 1272 1272 1221; Sub 1450 1450 1272; Mul 1272 358 1450;
  Add 1388 1388 1272; Mul 1272 35 1565; Mul 1221 304 1392; Add 1272 1272 1221; Mul 1221 19 1487;
  Mul 1701 215 1521; Sub 1221 1221 1701; Sub 1272 1272 1221; Mul 1221 365 1272; Mul 1701 308 1392;
  Mul 1242 35 1369; Add 1701 1701 1242; Mul 1242 19 1681; Mul 1269 313 1521; Sub 1242 1242 1269;
  Add 1701 1701 1242; Mul 1242 364 1701; Add 1221 1221 1242; Mul 1242 367 1452; Sub 1269 1330 1344;
  Mul 1415 310 1269; Add 1242 1242 1415; Add 1221 1221 1242; Add 1388 1388 1221].
Definition casadi_f0_307 : list instruction := [
  Mul 1221 213 1388; Mul 1242 385 1221; Mul 1415 19 1233; Mul 1598 315 1521; Sub 1415 1415 1598;
  Mul 1598 368 1415; Mul 1295 35 1233; Mul 1062 315 1392; Add 1295 1295 1062; Mul 1062 39 1295;
  Mul 1498 373 1526; Add 1062 1062 1498; Add 1598 1598 1062; Mul 1062 372 1598; Mul 1498 19 1102;
  Mul 1185 319 1521; Sub 1498 1498 1185; Mul 1185 216 1392; Mul 1417 35 1611; Sub 1185 1185 1417;
  Sub 1498 1498 1185; Mul 1185 370 1498; Add 1062 1062 1185; Mul 1185 39 1415; Mul 1417 376 1295;
  Add 1185 1185 1417; Mul 1417 377 1185; Mul 1253 35 1102; Mul 1224 319 1392; Add 1253 1253 1224;
  Mul 1224 19 1611; Mul 1547 216 1521; Add 1224 1224 1547; Sub 1253 1253 1224; Mul 1224 375 1253;
  Add 1417 1417 1224; Add 1062 1062 1417; Mul 1417 69 1272; Add 1062 1062 1417; Mul 1417 62 1102;
  Mul 1224 55 1147; Mul 1547 48 1611; Sub 1224 1224 1547; Add 1417 1417 1224; Add 1417 1130 1417;
  Mul 1224 380 1498; Mul 1547 24 1253; Mul 1319 31 1147; Add 1547 1547 1319; Add 1224 1224 1547;
  Add 1224 1417 1224; Mul 1547 378 1224; Mul 1547 384 1547; Mul 1319 62 1233; Mul 1532 55 1526;
  Add 1319 1319 1532; Add 1319 1208 1319; Mul 1532 380 1415; Mul 1302 24 1295; Mul 1593 31 1526;
  Add 1302 1302 1593; Add 1532 1532 1302; Add 1532 1319 1532; Mul 1302 382 1532; Add 1547 1547 1302;
  Sub 1547 1062 1547; Mul 1302 366 1547; Add 1593 1242 1302; Mul 1402 362 1498; Mul 1351 372 1450;
  Add 1402 1402 1351; Mul 1351 365 1253; Mul 1348 377 1701; Add 1351 1351 1348; Mul 1348 367 1147;
  Mul 1255 327 1269; Add 1348 1348 1255; Add 1351 1351 1348; Add 1402 1402 1351; Mul 1351 213 1402;
  Mul 1348 393 1351; Mul 1255 358 1598; Mul 1250 370 1594; Add 1255 1255 1250; Mul 1250 364 1185;
  Mul 1332 375 1272; Add 1250 1250 1332; Add 1255 1255 1250; Mul 1250 69 1253; Sub 1255 1255 1250;
  Mul 1250 62 1565; Mul 1332 55 1452; Mul 1177 48 1487; Sub 1332 1332 1177; Add 1250 1250 1332;
  Add 1250 1289 1250; Mul 1332 380 1594; Mul 1177 24 1272; Mul 1114 31 1452; Add 1177 1177 1114;
  Add 1332 1332 1177; Add 1332 1250 1332; Mul 1177 378 1332; Mul 1114 384 1177; Mul 1435 392 1532;
  Add 1114 1114 1435; Sub 1114 1255 1114; Mul 1435 388 1114; Add 1235 1348 1435; Sub 1104 1593 1235;
  Mul 1222 401 1532; Mul 1700 397 1415; Mul 1475 48 1330; Mul 1551 55 1681; Sub 1475 1475 1551;
  Sub 1315 1315 1475; Mul 1475 19 1315; Mul 1551 396 1521; Sub 1475 1475 1551; Mul 1551 398 1392;
  Mul 1645 55 1369; Mul 1330 62 1330; Sub 1645 1645 1330; Sub 1252 1252 1645; Mul 1645 35 1252;
  Add 1551 1551 1645; Sub 1475 1475 1551; Mul 1551 369 1475; Add 1700 1700 1551; Mul 1551 400 1295;
  Mul 1645 396 1392; Mul 1315 35 1315; Add 1645 1645 1315; Mul 1252 19 1252; Mul 1315 398 1521;
  Sub 1252 1252 1315; Add 1645 1645 1252; Mul 1252 371 1645; Add 1551 1551 1252; Mul 1252 402 1526;
  Mul 1681 62 1681; Mul 1369 48 1369; Sub 1681 1681 1369; Sub 1413 1413 1681; Mul 1681 318 1413;
  Add 1252 1252 1681; Add 1551 1551 1252; Add 1700 1700 1551; Mul 1551 387 1250].
Definition casadi_f0_308 : list instruction := [
  Mul 1252 390 1402; Add 1551 1551 1252; Mul 1252 363 1417; Mul 1681 379 1388; Add 1252 1252 1681;
  Sub 1551 1551 1252; Add 1700 1700 1551; Mul 1551 213 1700; Mul 1551 378 1551; Mul 1252 384 1551;
  Add 1681 1222 1252; Mul 1369 397 1594; Mul 1315 358 1475; Add 1369 1369 1315; Mul 1315 400 1272;
  Mul 1330 364 1645; Add 1315 1315 1330; Mul 1330 402 1452; Mul 1354 310 1413; Add 1330 1330 1354;
  Add 1315 1315 1330; Add 1369 1369 1315; Mul 1315 405 1417; Mul 1330 362 1415; Mul 1354 369 1450;
  Add 1330 1330 1354; Mul 1354 365 1295; Mul 1036 371 1701; Add 1354 1354 1036; Mul 1036 367 1526;
  Mul 1651 318 1269; Add 1036 1036 1651; Add 1354 1354 1036; Add 1330 1330 1354; Mul 1354 379 1330;
  Add 1315 1315 1354; Mul 1354 387 1319; Mul 1036 383 1402; Add 1354 1354 1036; Sub 1315 1315 1354;
  Add 1369 1369 1315; Mul 1315 213 1369; Mul 1315 378 1315; Mul 1354 391 1315; Mul 1036 406 1332;
  Add 1651 1354 1036; Mul 1561 397 1498; Mul 1291 372 1475; Add 1561 1561 1291; Mul 1291 400 1253;
  Mul 1026 377 1645; Add 1291 1291 1026; Mul 1026 402 1147; Mul 1353 327 1413; Add 1026 1026 1353;
  Add 1291 1291 1026; Add 1561 1561 1291; Mul 1291 363 1319; Mul 1026 383 1388; Add 1291 1291 1026;
  Mul 1026 405 1250; Mul 1353 390 1330; Add 1026 1026 1353; Sub 1291 1291 1026; Add 1561 1561 1291;
  Mul 1291 213 1561; Mul 1291 378 1291; Mul 1026 381 1291; Mul 1353 409 1224; Add 1542 1026 1353;
  Add 1252 1252 1222; Add 1222 1542 1252; Add 1651 1651 1222; Sub 1401 1681 1651; Add 1036 1036 1354;
  Add 1353 1353 1026; Add 1681 1353 1681; Add 1036 1036 1681; Sub 1252 1252 1036; Add 1401 1401 1252;
  Add 1435 1435 1348; Add 1302 1302 1242; Sub 1242 1435 1302; Add 1401 1401 1242; Sub 1104 1104 1401;
  Mul 1401 413 1594; Sub 1242 1450 1148; Mul 1348 358 1242; Add 1401 1401 1348; Mul 1348 16 1272;
  Mul 1252 364 1638; Sub 1348 1348 1252; Mul 1252 15 1452; Mul 1026 310 1226; Add 1252 1252 1026;
  Sub 1348 1348 1252; Mul 1252 419 1348; Mul 1026 16 1701; Mul 1354 365 1638; Sub 1026 1026 1354;
  Mul 1354 367 1226; Mul 1127 15 1269; Add 1354 1354 1127; Sub 1026 1026 1354; Mul 1354 418 1026;
  Add 1252 1252 1354; Mul 1354 15 1272; Mul 1127 364 1226; Add 1354 1354 1127; Mul 1127 16 1452;
  Mul 1071 310 1638; Sub 1127 1127 1071; Add 1354 1354 1127; Mul 1127 422 1354; Mul 1071 365 1226;
  Mul 1495 15 1701; Add 1071 1071 1495; Mul 1495 16 1269; Mul 1176 367 1638; Sub 1495 1495 1176;
  Add 1071 1071 1495; Mul 1495 421 1071; Add 1127 1127 1495; Add 1252 1252 1127; Add 1401 1401 1252;
  Mul 1252 213 1401; Mul 1127 439 1252; Mul 1495 423 1415; Mul 1176 16 1295; Mul 1677 371 1638;
  Sub 1176 1176 1677; Mul 1677 15 1526; Mul 1555 318 1226; Add 1677 1677 1555; Sub 1176 1176 1677;
  Mul 1677 40 1176; Mul 1555 15 1295; Mul 1682 371 1226; Add 1555 1555 1682; Mul 1682 16 1526;
  Mul 1343 318 1638; Sub 1682 1682 1343; Add 1555 1555 1682; Mul 1682 42 1555; Add 1677 1677 1682;
  Add 1495 1495 1677; Mul 1677 372 1495; Mul 1682 424 1498; Add 1677 1677 1682].
Definition casadi_f0_309 : list instruction := [
  Mul 1682 40 1415; Mul 1343 14 1176; Mul 1410 18 1555; Add 1343 1343 1410; Add 1682 1682 1343;
  Mul 1343 429 1682; Mul 1410 16 1253; Mul 1268 377 1638; Sub 1410 1410 1268; Mul 1268 15 1147;
  Mul 1229 327 1226; Add 1268 1268 1229; Sub 1410 1410 1268; Mul 1268 428 1410; Add 1343 1343 1268;
  Add 1677 1677 1343; Mul 1343 43 1348; Mul 1268 431 1594; Sub 1343 1343 1268; Add 1677 1677 1343;
  Mul 1343 198 1498; Mul 1268 25 1253; Mul 1229 32 1147; Add 1268 1268 1229; Add 1343 1343 1268;
  Add 1343 1417 1343; Mul 1268 433 1498; Mul 1229 26 1410; Mul 1123 15 1253; Mul 1655 377 1226;
  Add 1123 1123 1655; Mul 1655 16 1147; Mul 1230 327 1638; Sub 1655 1655 1230; Add 1123 1123 1655;
  Mul 1655 28 1123; Add 1229 1229 1655; Add 1268 1268 1229; Add 1268 1343 1268; Mul 1229 430 1268;
  Mul 1229 438 1229; Mul 1655 198 1415; Mul 1230 25 1295; Mul 1653 32 1526; Add 1230 1230 1653;
  Add 1655 1655 1230; Add 1655 1319 1655; Mul 1230 433 1415; Mul 1653 26 1176; Mul 1143 28 1555;
  Add 1653 1653 1143; Add 1230 1230 1653; Add 1230 1655 1230; Mul 1653 435 1230; Add 1229 1229 1653;
  Sub 1229 1677 1229; Mul 1653 420 1229; Add 1143 1127 1653; Mul 1019 413 1498; Mul 1122 372 1242;
  Add 1019 1019 1122; Mul 1122 419 1410; Mul 1492 429 1026; Add 1122 1122 1492; Mul 1492 422 1123;
  Mul 1096 436 1071; Add 1492 1492 1096; Add 1122 1122 1492; Add 1019 1019 1122; Mul 1122 213 1019;
  Mul 1492 447 1122; Mul 1096 358 1495; Mul 1670 424 1594; Add 1096 1096 1670; Mul 1670 418 1682;
  Mul 1093 428 1348; Add 1670 1670 1093; Add 1096 1096 1670; Mul 1670 43 1410; Mul 1093 431 1498;
  Sub 1670 1670 1093; Sub 1096 1096 1670; Mul 1670 198 1594; Mul 1093 25 1272; Mul 1616 32 1452;
  Add 1093 1093 1616; Add 1670 1670 1093; Add 1670 1250 1670; Mul 1093 433 1594; Mul 1616 26 1348;
  Mul 1546 28 1354; Add 1616 1616 1546; Add 1093 1093 1616; Add 1093 1670 1093; Mul 1616 430 1093;
  Mul 1546 438 1616; Mul 1364 446 1230; Add 1546 1546 1364; Sub 1546 1096 1546; Mul 1364 442 1546;
  Add 1694 1492 1364; Sub 1149 1143 1694; Mul 1258 455 1230; Mul 1412 450 1415; Mul 1109 25 1269;
  Mul 1537 32 1701; Sub 1109 1109 1537; Sub 1475 1475 1109; Mul 1109 369 1475; Add 1412 1412 1109;
  Mul 1109 453 1176; Mul 1537 32 1450; Mul 1269 198 1269; Sub 1537 1537 1269; Sub 1645 1645 1537;
  Mul 1537 16 1645; Mul 1269 452 1638; Sub 1537 1537 1269; Mul 1269 454 1226; Mul 1701 198 1701;
  Mul 1450 25 1450; Sub 1701 1701 1450; Sub 1413 1413 1701; Mul 1701 15 1413; Add 1269 1269 1701;
  Sub 1537 1537 1269; Mul 1269 425 1537; Add 1109 1109 1269; Mul 1269 456 1555; Mul 1701 452 1226;
  Mul 1645 15 1645; Add 1701 1701 1645; Mul 1413 16 1413; Mul 1645 454 1638; Sub 1413 1413 1645;
  Add 1701 1701 1413; Mul 1413 427 1701; Add 1269 1269 1413; Add 1109 1109 1269; Add 1412 1412 1109;
  Mul 1109 441 1670; Mul 1269 444 1019; Add 1109 1109 1269; Mul 1269 417 1343; Mul 1413 432 1401;
  Add 1269 1269 1413; Sub 1109 1109 1269; Add 1412 1412 1109; Mul 1109 213 1412].
Definition casadi_f0_310 : list instruction := [
  Mul 1109 430 1109; Mul 1269 438 1109; Add 1413 1258 1269; Mul 1645 450 1594; Mul 1450 358 1475;
  Add 1645 1645 1450; Mul 1450 453 1348; Mul 1627 418 1537; Add 1450 1450 1627; Mul 1354 456 1354;
  Mul 1627 421 1701; Add 1354 1354 1627; Add 1450 1450 1354; Add 1645 1645 1450; Mul 1450 459 1343;
  Mul 1354 413 1415; Mul 1242 369 1242; Add 1354 1354 1242; Mul 1242 419 1176; Mul 1026 425 1026;
  Add 1242 1242 1026; Mul 1555 422 1555; Mul 1071 427 1071; Add 1555 1555 1071; Add 1242 1242 1555;
  Add 1354 1354 1242; Mul 1242 432 1354; Add 1450 1450 1242; Mul 1242 441 1655; Mul 1555 437 1019;
  Add 1242 1242 1555; Sub 1450 1450 1242; Add 1645 1645 1450; Mul 1450 213 1645; Mul 1450 430 1450;
  Mul 1242 445 1450; Mul 1555 460 1093; Add 1071 1242 1555; Mul 1026 450 1498; Mul 1475 372 1475;
  Add 1026 1026 1475; Mul 1475 453 1410; Mul 1537 429 1537; Add 1475 1475 1537; Mul 1537 456 1123;
  Mul 1701 436 1701; Add 1537 1537 1701; Add 1475 1475 1537; Add 1026 1026 1475; Mul 1475 417 1655;
  Mul 1537 437 1401; Add 1475 1475 1537; Mul 1537 459 1670; Mul 1701 444 1354; Add 1537 1537 1701;
  Sub 1475 1475 1537; Add 1026 1026 1475; Mul 1475 213 1026; Mul 1475 430 1475; Mul 1537 434 1475;
  Mul 1701 463 1268; Add 1627 1537 1701; Add 1269 1269 1258; Add 1258 1627 1269; Add 1071 1071 1258;
  Sub 1303 1413 1071; Add 1555 1555 1242; Add 1701 1701 1537; Add 1413 1701 1413; Add 1555 1555 1413;
  Sub 1269 1269 1555; Add 1303 1303 1269; Add 1364 1364 1492; Add 1653 1653 1127; Sub 1127 1364 1653;
  Add 1303 1303 1127; Sub 1149 1149 1303; Add 1104 1104 1149; Add 1257 1257 1104; Add 1451 1451 1257;
  Add 1490 1490 1451; Mul 1490 0 1490; Mul 1451 235 1482; Add 1490 1490 1451; Mul 1518 261 1518;
  Mul 1451 262 1538; Add 1518 1518 1451; Mul 1103 315 1103; Mul 1451 316 1233; Add 1103 1103 1451;
  Mul 1598 369 1598; Mul 1451 370 1415; Add 1598 1598 1451; Mul 1185 371 1185; Mul 1451 375 1295;
  Add 1185 1185 1451; Add 1598 1598 1185; Mul 1495 369 1495; Mul 1185 424 1415; Add 1495 1495 1185;
  Mul 1682 425 1682; Mul 1185 428 1176; Add 1682 1682 1185; Add 1495 1495 1682; Add 1682 1598 1495;
  Sub 1185 1332 1093; Mul 1451 480 1185; Sub 1257 1224 1268; Mul 1303 1197 1257; Add 1127 1451 1303;
  Mul 1127 20 1127; Add 1682 1682 1127; Add 1127 1103 1682; Mul 1492 485 1332; Mul 1269 50 1093;
  Add 1492 1492 1269; Sub 1269 1247 1492; Mul 1537 487 1269; Mul 1242 485 1224; Mul 1333 50 1268;
  Add 1242 1242 1333; Sub 1333 1400 1242; Mul 1649 1286 1333; Add 1089 1537 1649; Mul 1089 37 1089;
  Add 1127 1127 1089; Add 1089 1518 1127; Mul 1696 493 1247; Mul 1256 83 1492; Add 1696 1696 1256;
  Sub 1256 1650 1696; Mul 1192 495 1256; Mul 1425 493 1400; Mul 1218 83 1242; Add 1425 1425 1218;
  Sub 1218 1228 1425; Mul 1488 1294 1218; Add 1094 1192 1488; Mul 1094 80 1094; Add 1089 1089 1094;
  Mul 1094 237 1135; Mul 1617 113 1617; Sub 1094 1094 1617; Sub 1617 1089 1094; Mul 1543 501 1228;
  Mul 1468 104 1425; Add 1543 1543 1468; Sub 1468 1620 1543; Mul 1239 1299 1468].
Definition casadi_f0_311 : list instruction := [
  Mul 1528 501 1650; Mul 1559 104 1696; Add 1528 1528 1559; Add 1559 1662 1528; Mul 1161 503 1559;
  Sub 1276 1239 1161; Mul 1276 100 1276; Add 1617 1617 1276; Mul 1617 508 1617; Mul 1276 216 1674;
  Mul 1586 219 1611; Sub 1276 1276 1586; Mul 1586 215 1624; Mul 1298 227 1487; Add 1586 1586 1298;
  Add 1276 1276 1586; Mul 1586 500 1276; Add 1617 1617 1586; Add 1586 1255 1096; Mul 1185 20 1185;
  Mul 1298 512 1185; Sub 1087 1532 1230; Mul 1436 511 1087; Add 1298 1298 1436; Sub 1586 1586 1298;
  Add 1298 1545 1586; Mul 1269 37 1269; Mul 1436 516 1269; Mul 1581 485 1532; Mul 1699 50 1230;
  Add 1581 1581 1699; Sub 1699 1640 1581; Mul 1206 514 1699; Add 1436 1436 1206; Sub 1298 1298 1436;
  Add 1436 1137 1298; Mul 1256 80 1256; Mul 1206 520 1256; Mul 1154 493 1640; Mul 1422 83 1581;
  Add 1154 1154 1422; Sub 1422 1382 1154; Mul 1173 518 1422; Add 1206 1206 1173; Sub 1436 1436 1206;
  Add 1206 1282 1436; Mul 1559 100 1559; Mul 1173 524 1559; Mul 1203 501 1382; Mul 1634 104 1154;
  Add 1203 1203 1634; Add 1634 1359 1203; Mul 1216 522 1634; Add 1173 1173 1216; Add 1206 1206 1173;
  Mul 1173 526 1206; Mul 1216 221 1135; Mul 1274 113 1274; Add 1216 1216 1274; Mul 1340 114 1340;
  Mul 1274 218 1560; Sub 1340 1340 1274; Add 1216 1216 1340; Mul 1340 216 1216; Mul 1274 525 1611;
  Sub 1340 1340 1274; Mul 1274 521 1340; Add 1173 1173 1274; Add 1274 1062 1677; Mul 1084 20 1257;
  Mul 1084 512 1084; Mul 1496 529 1087; Add 1084 1084 1496; Sub 1274 1274 1084; Add 1084 1394 1274;
  Mul 1496 37 1333; Mul 1496 516 1496; Mul 1622 531 1699; Add 1496 1496 1622; Sub 1084 1084 1496;
  Add 1496 1609 1084; Mul 1622 80 1218; Mul 1622 520 1622; Mul 1371 533 1422; Add 1622 1622 1371;
  Sub 1496 1496 1622; Add 1622 1189 1496; Mul 1371 100 1468; Mul 1371 524 1371; Mul 1511 535 1634;
  Sub 1371 1371 1511; Sub 1622 1622 1371; Mul 1371 536 1622; Mul 1511 215 1216; Mul 1296 525 1487;
  Add 1511 1511 1296; Mul 1296 534 1511; Add 1371 1371 1296; Add 1173 1173 1371; Sub 1617 1617 1173;
  Mul 1173 120 1528; Mul 1371 527 1662; Sub 1173 1173 1371; Mul 1371 539 1173; Mul 1296 120 1203;
  Mul 1579 527 1359; Sub 1296 1296 1579; Mul 1579 526 1296; Mul 1310 538 1340; Add 1579 1579 1310;
  Mul 1310 508 1173; Mul 1539 537 1276; Add 1310 1310 1539; Add 1579 1579 1310; Mul 1310 540 1216;
  Mul 1539 214 1611; Mul 1202 525 1539; Sub 1310 1310 1202; Sub 1579 1579 1310; Mul 1579 141 1579;
  Mul 1202 537 1579; Add 1371 1371 1202; Mul 1202 527 1620; Mul 1666 120 1543; Add 1202 1202 1666;
  Mul 1666 546 1202; Mul 1042 544 1216; Mul 1055 214 1487; Mul 1079 525 1055; Add 1042 1042 1079;
  Mul 1079 508 1202; Mul 1613 543 1276; Add 1079 1079 1613; Mul 1613 536 1296; Mul 1086 538 1511;
  Add 1613 1613 1086; Add 1079 1079 1613; Sub 1079 1042 1079; Mul 1079 141 1079; Mul 1613 543 1079;
  Add 1666 1666 1613; Sub 1371 1371 1666; Add 1617 1617 1371; Mul 1371 553 1075; Mul 1666 238 1456;
  Mul 1365 236 1365; Mul 1613 144 1611; Sub 1365 1365 1613; Add 1666 1666 1365].
Definition casadi_f0_312 : list instruction := [
  Mul 1365 224 1666; Mul 1613 542 1456; Add 1365 1365 1613; Mul 1456 144 1456; Mul 1613 549 1611;
  Sub 1456 1456 1613; Mul 1613 216 1456; Mul 1086 548 1611; Sub 1613 1613 1086; Add 1365 1365 1613;
  Mul 1613 1334 1662; Mul 1086 1336 1359; Add 1393 1613 1086; Mul 1393 212 1393; Sub 1393 1365 1393;
  Mul 1684 249 1393; Add 1163 1371 1684; Mul 1648 556 1693; Mul 1666 220 1666; Mul 1200 542 1200;
  Sub 1666 1666 1200; Mul 1456 215 1456; Mul 1200 548 1487; Add 1456 1456 1200; Sub 1666 1666 1456;
  Mul 1456 241 1620; Mul 1052 225 1052; Sub 1456 1456 1052; Sub 1456 1666 1456; Mul 1052 244 1456;
  Add 1200 1648 1052; Sub 1163 1163 1200; Mul 1200 242 1647; Mul 1183 223 1359; Sub 1200 1200 1183;
  Mul 1183 1342 1620; Sub 1613 1183 1613; Mul 1613 212 1613; Sub 1613 1613 1094; Mul 1669 249 1613;
  Mul 1164 551 1075; Add 1312 1669 1164; Mul 1098 560 1263; Mul 1486 213 1216; Mul 1117 243 1486;
  Add 1636 1098 1117; Sub 1312 1312 1636; Add 1312 1200 1312; Sub 1163 1163 1312; Sub 1312 1094 1365;
  Mul 1636 219 1312; Mul 1467 557 1674; Add 1636 1636 1467; Mul 1467 227 1666; Mul 1658 555 1624;
  Add 1467 1467 1658; Add 1636 1636 1467; Mul 1467 525 1282; Mul 1658 239 1216; Add 1467 1467 1658;
  Add 1636 1636 1467; Mul 1467 340 1620; Mul 1658 231 1624; Mul 1112 227 1662; Sub 1658 1658 1112;
  Mul 1112 219 1620; Mul 1601 225 1674; Add 1112 1112 1601; Sub 1658 1658 1112; Mul 1658 212 1658;
  Mul 1112 225 1658; Add 1467 1467 1112; Mul 1112 242 1674; Mul 1601 219 1359; Sub 1112 1112 1601;
  Mul 1601 231 1216; Mul 1663 525 1662; Sub 1601 1601 1663; Sub 1112 1112 1601; Sub 1112 1338 1112;
  Mul 1112 212 1112; Mul 1601 242 1112; Mul 1663 559 1359; Sub 1601 1601 1663; Add 1467 1467 1601;
  Sub 1636 1636 1467; Mul 1636 213 1636; Sub 1163 1163 1636; Mul 1467 567 1199; Mul 1601 260 1152;
  Mul 1663 263 1167; Mul 1201 127 1611; Sub 1663 1663 1201; Add 1601 1601 1663; Mul 1663 265 1601;
  Mul 1201 547 1152; Add 1663 1663 1201; Mul 1152 127 1152; Mul 1167 268 1167; Mul 1201 563 1611;
  Sub 1167 1167 1201; Add 1152 1152 1167; Mul 1167 216 1152; Mul 1201 562 1611; Sub 1167 1167 1201;
  Add 1663 1663 1167; Mul 1167 1138 1650; Mul 1201 1357 1382; Add 1522 1167 1201; Mul 1522 269 1522;
  Add 1522 1663 1522; Mul 1279 258 1522; Add 1325 1467 1279; Mul 1504 570 1016; Mul 1601 253 1601;
  Mul 1119 547 1119; Add 1601 1601 1119; Mul 1152 215 1152; Mul 1119 562 1487; Add 1152 1152 1119;
  Sub 1601 1601 1152; Mul 1538 135 1538; Sub 1601 1601 1538; Mul 1583 271 1583; Mul 1538 283 1228;
  Add 1583 1583 1538; Sub 1583 1601 1583; Mul 1538 279 1583; Add 1152 1504 1538; Sub 1325 1325 1152;
  Mul 1152 300 1382; Mul 1119 275 1060; Add 1251 1152 1119; Mul 1628 271 1454; Mul 1689 292 1228;
  Add 1577 1628 1689; Add 1251 1251 1577; Mul 1577 1366 1228; Add 1167 1167 1577; Mul 1167 269 1167;
  Add 1167 1518 1167; Mul 1180 258 1167; Mul 1162 565 1199; Add 1493 1180 1162; Mul 1420 574 1316;
  Mul 1519 213 1169; Mul 1556 284 1519; Add 1144 1420 1556; Sub 1493 1493 1144].
Definition casadi_f0_313 : list instruction := [
  Add 1251 1251 1493; Sub 1325 1325 1251; Mul 1251 571 1564; Add 1493 1663 1518; Mul 1144 255 1493;
  Sub 1251 1251 1144; Mul 1144 278 1601; Mul 1101 569 1150; Add 1144 1144 1101; Add 1251 1251 1144;
  Mul 1144 296 1137; Mul 1101 280 1169; Add 1144 1144 1101; Add 1251 1251 1144; Mul 1144 471 1228;
  Mul 1101 278 1650; Mul 1196 282 1150; Add 1101 1101 1196; Mul 1196 255 1228; Mul 1118 271 1564;
  Add 1196 1196 1118; Sub 1101 1101 1196; Sub 1101 1665 1101; Mul 1101 269 1101; Mul 1196 271 1101;
  Add 1144 1144 1196; Mul 1196 573 1382; Mul 1118 255 1382; Mul 1605 275 1564; Add 1118 1118 1605;
  Mul 1605 296 1650; Mul 1267 282 1169; Add 1605 1605 1267; Sub 1118 1118 1605; Sub 1118 1672 1118;
  Mul 1118 269 1118; Mul 1605 275 1118; Add 1196 1196 1605; Sub 1144 1144 1196; Add 1251 1251 1144;
  Mul 1251 213 1251; Sub 1325 1325 1251; Mul 1144 581 1266; Mul 1196 314 1102; Mul 1605 317 1147;
  Mul 1267 128 1611; Sub 1605 1605 1267; Add 1196 1196 1605; Mul 1605 319 1196; Mul 1267 561 1102;
  Add 1605 1605 1267; Mul 1102 128 1102; Mul 1267 322 1147; Mul 1204 577 1611; Sub 1267 1267 1204;
  Add 1102 1102 1267; Mul 1267 216 1102; Mul 1204 576 1611; Sub 1267 1267 1204; Add 1605 1605 1267;
  Mul 1267 1379 1247; Mul 1204 1381 1640; Add 1510 1267 1204; Mul 1510 323 1510; Add 1510 1605 1510;
  Mul 1544 312 1510; Add 1673 1144 1544; Mul 1443 584 1523; Mul 1196 304 1196; Mul 1565 561 1565;
  Add 1196 1196 1565; Mul 1102 215 1102; Mul 1565 576 1487; Add 1102 1102 1565; Sub 1196 1196 1102;
  Mul 1233 131 1233; Sub 1196 1196 1233; Mul 1238 325 1238; Mul 1233 337 1400; Add 1238 1238 1233;
  Sub 1238 1196 1238; Mul 1233 333 1238; Add 1102 1443 1233; Sub 1673 1673 1102; Mul 1102 354 1640;
  Mul 1565 329 1383; Add 1124 1102 1565; Mul 1501 325 1499; Mul 1599 346 1400; Add 1025 1501 1599;
  Add 1124 1124 1025; Mul 1025 1390 1400; Add 1267 1267 1025; Mul 1267 323 1267; Add 1267 1103 1267;
  Mul 1215 312 1267; Mul 1321 579 1266; Add 1667 1215 1321; Mul 1608 588 1172; Mul 1329 213 1091;
  Mul 1485 338 1329; Add 1280 1608 1485; Sub 1667 1667 1280; Add 1124 1124 1667; Sub 1673 1673 1124;
  Mul 1124 585 1032; Add 1667 1605 1103; Mul 1280 309 1667; Sub 1124 1124 1280; Mul 1280 332 1196;
  Mul 1105 583 1360; Add 1280 1280 1105; Add 1124 1124 1280; Mul 1280 349 1545; Mul 1105 334 1091;
  Add 1280 1280 1105; Add 1124 1124 1280; Mul 1280 473 1400; Mul 1105 332 1247; Mul 1424 336 1360;
  Add 1105 1105 1424; Mul 1424 309 1400; Mul 1466 325 1032; Add 1424 1424 1466; Sub 1105 1105 1424;
  Sub 1105 1691 1105; Mul 1105 323 1105; Mul 1424 325 1105; Add 1280 1280 1424; Mul 1424 587 1640;
  Mul 1466 309 1640; Mul 1457 329 1032; Add 1466 1466 1457; Mul 1457 349 1247; Mul 1038 336 1091;
  Add 1457 1457 1038; Sub 1466 1466 1457; Sub 1466 1134 1466; Mul 1466 323 1466; Mul 1457 329 1466;
  Add 1424 1424 1457; Sub 1280 1280 1424; Add 1124 1124 1280; Mul 1124 213 1124; Sub 1673 1673 1124;
  Mul 1280 594 1221; Mul 1424 368 1498; Mul 1457 39 1253; Mul 1038 373 1147].
Definition casadi_f0_314 : list instruction := [
  Add 1457 1457 1038; Add 1424 1424 1457; Mul 1457 372 1424; Mul 1038 575 1498; Add 1457 1457 1038;
  Mul 1038 39 1498; Mul 1687 376 1253; Add 1038 1038 1687; Mul 1687 377 1038; Mul 1253 590 1253;
  Add 1687 1687 1253; Add 1457 1457 1687; Mul 1687 1404 1332; Mul 1253 1405 1532; Add 1513 1687 1253;
  Mul 1513 378 1513; Add 1513 1457 1513; Mul 1270 366 1513; Add 1237 1280 1270; Mul 1570 597 1351;
  Mul 1424 358 1424; Mul 1502 575 1594; Add 1424 1424 1502; Mul 1038 364 1038; Mul 1272 590 1272;
  Add 1038 1038 1272; Add 1424 1424 1038; Mul 1295 69 1295; Add 1424 1424 1295; Mul 1177 381 1177;
  Mul 1295 392 1224; Add 1177 1177 1295; Sub 1177 1424 1177; Mul 1295 388 1177; Add 1038 1570 1295;
  Sub 1237 1237 1038; Mul 1038 409 1532; Mul 1272 384 1291; Add 1502 1038 1272; Mul 1347 381 1551;
  Mul 1416 401 1224; Add 1022 1347 1416; Add 1502 1502 1022; Mul 1022 1414 1224; Add 1687 1687 1022;
  Mul 1687 378 1687; Add 1687 1598 1687; Mul 1386 366 1687; Mul 1107 592 1221; Add 1585 1386 1107;
  Mul 1471 601 1114; Mul 1517 213 1330; Mul 1642 393 1517; Add 1378 1471 1642; Sub 1585 1585 1378;
  Add 1502 1502 1585; Sub 1237 1237 1502; Mul 1502 598 1388; Add 1585 1457 1598; Mul 1378 363 1585;
  Sub 1502 1502 1378; Mul 1378 387 1424; Mul 1566 596 1402; Add 1378 1378 1566; Add 1502 1502 1378;
  Mul 1378 405 1255; Mul 1566 389 1330; Add 1378 1378 1566; Add 1502 1502 1378; Mul 1378 475 1224;
  Mul 1566 387 1332; Mul 1398 391 1402; Add 1566 1566 1398; Mul 1398 363 1224; Mul 1219 381 1388;
  Add 1398 1398 1219; Sub 1566 1566 1398; Sub 1566 1700 1566; Mul 1566 378 1566; Mul 1398 381 1566;
  Add 1378 1378 1398; Mul 1398 600 1532; Mul 1219 363 1532; Mul 1571 384 1388; Add 1219 1219 1571;
  Mul 1571 405 1332; Mul 1449 391 1330; Add 1571 1571 1449; Sub 1219 1219 1571; Sub 1219 1561 1219;
  Mul 1219 378 1219; Mul 1571 384 1219; Add 1398 1398 1571; Sub 1378 1378 1398; Add 1502 1502 1378;
  Mul 1502 213 1502; Sub 1237 1237 1502; Mul 1378 607 1252; Mul 1398 423 1498; Mul 1571 40 1410;
  Mul 1449 42 1123; Add 1571 1571 1449; Add 1398 1398 1571; Mul 1571 372 1398; Mul 1449 589 1498;
  Add 1571 1571 1449; Mul 1449 40 1498; Mul 1120 14 1410; Mul 1123 18 1123; Add 1120 1120 1123;
  Add 1449 1449 1120; Mul 1120 429 1449; Mul 1410 603 1410; Add 1120 1120 1410; Add 1571 1571 1120;
  Mul 1120 1428 1093; Mul 1410 1264 1230; Add 1123 1120 1410; Mul 1123 430 1123; Add 1123 1571 1123;
  Mul 1355 420 1123; Add 1345 1378 1355; Mul 1500 610 1122; Mul 1398 358 1398; Mul 1326 589 1594;
  Add 1398 1398 1326; Mul 1449 418 1449; Mul 1348 603 1348; Add 1449 1449 1348; Add 1398 1398 1449;
  Mul 1176 43 1176; Mul 1449 431 1415; Sub 1176 1176 1449; Add 1398 1398 1176; Mul 1616 434 1616;
  Mul 1176 446 1268; Add 1616 1616 1176; Sub 1616 1398 1616; Mul 1176 442 1616; Add 1449 1500 1176;
  Sub 1345 1345 1449; Mul 1449 463 1230; Mul 1348 438 1475; Add 1326 1449 1348; Mul 1458 434 1109;
  Mul 1478 455 1268; Add 1209 1458 1478; Add 1326 1326 1209; Mul 1209 1437 1268].
Definition casadi_f0_315 : list instruction := [
  Add 1120 1120 1209; Mul 1120 430 1120; Add 1120 1495 1120; Mul 1361 420 1120; Mul 1314 605 1252;
  Add 1536 1361 1314; Mul 1575 614 1546; Mul 1491 213 1354; Mul 1368 447 1491; Add 1313 1575 1368;
  Sub 1536 1536 1313; Add 1326 1326 1536; Sub 1345 1345 1326; Mul 1326 13 1401; Add 1536 1571 1495;
  Mul 1313 417 1536; Sub 1326 1326 1313; Mul 1313 441 1398; Mul 1254 609 1019; Add 1313 1313 1254;
  Add 1326 1326 1313; Mul 1313 459 1096; Mul 1254 443 1354; Add 1313 1313 1254; Add 1326 1326 1313;
  Mul 1313 477 1268; Mul 1254 441 1093; Mul 1587 445 1019; Add 1254 1254 1587; Mul 1587 417 1268;
  Mul 1113 434 1401; Add 1587 1587 1113; Sub 1254 1254 1587; Sub 1254 1412 1254; Mul 1254 430 1254;
  Mul 1587 434 1254; Add 1313 1313 1587; Mul 1587 611 1230; Mul 1113 417 1230; Mul 1396 438 1401;
  Add 1113 1113 1396; Mul 1396 459 1093; Mul 1166 445 1354; Add 1396 1396 1166; Sub 1113 1113 1396;
  Sub 1113 1026 1113; Mul 1113 430 1113; Mul 1396 438 1113; Add 1587 1587 1396; Sub 1313 1313 1587;
  Add 1326 1326 1313; Mul 1326 213 1326; Sub 1345 1345 1326; Add 1237 1237 1345; Add 1673 1673 1237;
  Add 1325 1325 1673; Add 1163 1163 1325; Mul 1163 216 1163; Mul 1313 554 1611; Sub 1163 1163 1313;
  Mul 1313 242 1248; Mul 1587 230 1359; Sub 1313 1313 1587; Mul 1587 560 1589; Mul 1396 248 1486;
  Add 1166 1587 1396; Mul 1613 244 1613; Mul 1582 551 1693; Add 1244 1613 1582; Sub 1166 1166 1244;
  Sub 1166 1313 1166; Mul 1244 556 1075; Mul 1494 249 1456; Add 1088 1244 1494; Mul 1399 558 1693;
  Sub 1183 1183 1086; Mul 1183 212 1183; Add 1183 1312 1183; Mul 1086 244 1183; Add 1146 1399 1086;
  Sub 1088 1088 1146; Add 1166 1166 1088; Mul 1088 219 1666; Mul 1146 555 1674; Add 1088 1088 1146;
  Mul 1146 227 1365; Mul 1552 550 1624; Add 1146 1146 1552; Add 1088 1088 1146; Mul 1146 525 1189;
  Mul 1552 246 1216; Add 1146 1146 1552; Add 1088 1088 1146; Mul 1146 231 1658; Mul 1552 340 1662;
  Sub 1146 1146 1552; Mul 1552 525 1620; Mul 1300 225 1216; Add 1552 1552 1300; Mul 1300 242 1624;
  Mul 1688 227 1359; Sub 1300 1300 1688; Sub 1552 1552 1300; Add 1552 1668 1552; Mul 1552 212 1552;
  Mul 1300 242 1552; Mul 1688 616 1359; Sub 1300 1300 1688; Sub 1146 1146 1300; Add 1088 1088 1146;
  Mul 1088 213 1088; Add 1166 1166 1088; Mul 1146 570 1199; Mul 1300 258 1583; Add 1688 1146 1300;
  Mul 1595 572 1016; Add 1577 1577 1201; Mul 1577 269 1577; Sub 1577 1577 1493; Mul 1201 279 1577;
  Add 1205 1595 1201; Sub 1688 1688 1205; Mul 1205 297 1382; Mul 1447 275 1590; Add 1664 1205 1447;
  Mul 1527 282 1454; Mul 1442 292 1650; Add 1281 1527 1442; Add 1664 1664 1281; Mul 1281 574 1141;
  Mul 1476 276 1519; Add 1193 1281 1476; Mul 1167 279 1167; Mul 1100 565 1016; Add 1363 1167 1100;
  Sub 1193 1193 1363; Add 1664 1664 1193; Sub 1688 1688 1664; Mul 1664 255 1601; Mul 1193 569 1564;
  Add 1664 1664 1193; Mul 1193 278 1663; Mul 1363 564 1150; Add 1193 1193 1363; Add 1664 1664 1193;
  Mul 1193 296 1609; Mul 1363 266 1169; Add 1193 1193 1363; Add 1664 1664 1193].
Definition casadi_f0_316 : list instruction := [
  Mul 1193 617 1382; Mul 1363 296 1228; Mul 1213 271 1169; Add 1363 1363 1213; Mul 1213 278 1382;
  Mul 1427 275 1150; Add 1213 1213 1427; Sub 1363 1363 1213; Sub 1363 1082 1363; Mul 1363 269 1363;
  Mul 1213 275 1363; Add 1193 1193 1213; Mul 1213 471 1650; Mul 1427 282 1101; Add 1213 1213 1427;
  Sub 1193 1193 1213; Add 1664 1664 1193; Mul 1664 213 1664; Add 1688 1688 1664; Mul 1193 584 1266;
  Mul 1213 312 1238; Add 1427 1193 1213; Mul 1558 586 1523; Add 1025 1025 1204; Mul 1025 323 1025;
  Sub 1025 1025 1667; Mul 1204 333 1025; Add 1540 1558 1204; Sub 1427 1427 1540; Mul 1540 351 1640;
  Mul 1465 329 1563; Add 1140 1540 1465; Mul 1483 336 1499; Mul 1432 346 1247; Add 1698 1483 1432;
  Add 1140 1140 1698; Mul 1698 588 1549; Mul 1480 330 1329; Add 1574 1698 1480; Mul 1267 333 1267;
  Mul 1557 579 1523; Add 1602 1267 1557; Sub 1574 1574 1602; Add 1140 1140 1574; Sub 1427 1427 1140;
  Mul 1140 309 1196; Mul 1574 583 1032; Add 1140 1140 1574; Mul 1574 332 1605; Mul 1602 578 1360;
  Add 1574 1574 1602; Add 1140 1140 1574; Mul 1574 349 1394; Mul 1602 320 1091; Add 1574 1574 1602;
  Add 1140 1140 1574; Mul 1574 619 1640; Mul 1602 349 1400; Mul 1116 325 1091; Add 1602 1602 1116;
  Mul 1116 332 1640; Mul 1497 329 1360; Add 1116 1116 1497; Sub 1602 1602 1116; Sub 1602 1121 1602;
  Mul 1602 323 1602; Mul 1116 329 1602; Add 1574 1574 1116; Mul 1116 473 1247; Mul 1497 336 1105;
  Add 1116 1116 1497; Sub 1574 1574 1116; Add 1140 1140 1574; Mul 1140 213 1140; Add 1427 1427 1140;
  Mul 1574 597 1221; Mul 1116 366 1177; Add 1497 1574 1116; Mul 1448 599 1351; Add 1022 1022 1253;
  Mul 1022 378 1022; Sub 1022 1022 1585; Mul 1253 388 1022; Add 1395 1448 1253; Sub 1497 1497 1395;
  Mul 1395 406 1532; Mul 1441 384 1315; Add 1190 1395 1441; Mul 1108 391 1551; Mul 1317 401 1332;
  Add 1597 1108 1317; Add 1190 1190 1597; Mul 1597 601 1547; Mul 1464 385 1517; Add 1225 1597 1464;
  Mul 1687 388 1687; Mul 1324 592 1351; Add 1391 1687 1324; Sub 1225 1225 1391; Add 1190 1190 1225;
  Sub 1497 1497 1190; Mul 1190 363 1424; Mul 1225 596 1388; Add 1190 1190 1225; Mul 1225 387 1457;
  Mul 1391 591 1402; Add 1225 1225 1391; Add 1190 1190 1225; Mul 1225 405 1062; Mul 1391 374 1330;
  Add 1225 1225 1391; Add 1190 1190 1225; Mul 1225 621 1532; Mul 1391 405 1224; Mul 1644 381 1330;
  Add 1391 1391 1644; Mul 1644 387 1532; Mul 1481 384 1402; Add 1644 1644 1481; Sub 1391 1391 1644;
  Sub 1391 1369 1391; Mul 1391 378 1391; Mul 1644 384 1391; Add 1225 1225 1644; Mul 1644 475 1332;
  Mul 1481 391 1566; Add 1644 1644 1481; Sub 1225 1225 1644; Add 1190 1190 1225; Mul 1190 213 1190;
  Add 1497 1497 1190; Mul 1225 610 1252; Mul 1644 420 1616; Add 1481 1225 1644; Mul 1376 612 1122;
  Add 1209 1209 1410; Mul 1209 430 1209; Sub 1209 1209 1536; Mul 1410 442 1209; Add 1403 1376 1410;
  Sub 1481 1481 1403; Mul 1403 460 1230; Mul 1191 438 1450; Add 1421 1403 1191; Mul 1520 445 1109;
  Mul 1106 455 1093; Add 1090 1520 1106; Add 1421 1421 1090; Mul 1090 614 1229].
Definition casadi_f0_317 : list instruction := [
  Mul 1227 439 1491; Add 1373 1090 1227; Mul 1120 442 1120; Mul 1584 605 1122; Add 1430 1120 1584;
  Sub 1373 1373 1430; Add 1421 1421 1373; Sub 1481 1481 1421; Mul 1421 417 1398; Mul 1373 609 1401;
  Add 1421 1421 1373; Mul 1373 441 1571; Mul 1430 604 1019; Add 1373 1373 1430; Add 1421 1421 1373;
  Mul 1373 459 1677; Mul 1430 426 1354; Add 1373 1373 1430; Add 1421 1421 1373; Mul 1373 623 1230;
  Mul 1430 459 1268; Mul 1139 434 1354; Add 1430 1430 1139; Mul 1139 441 1230; Mul 1606 438 1019;
  Add 1139 1139 1606; Sub 1430 1430 1139; Sub 1430 1645 1430; Mul 1430 430 1430; Mul 1139 438 1430;
  Add 1373 1373 1139; Mul 1139 477 1093; Mul 1606 445 1254; Add 1139 1139 1606; Sub 1373 1373 1139;
  Add 1421 1421 1373; Mul 1421 213 1421; Add 1481 1481 1421; Add 1497 1497 1481; Add 1427 1427 1497;
  Add 1688 1688 1427; Add 1166 1166 1688; Mul 1166 215 1166; Mul 1373 613 1487; Add 1166 1166 1373;
  Sub 1163 1163 1166; Mul 1166 212 1075; Mul 1373 242 1166; Mul 1139 624 1359; Sub 1373 1373 1139;
  Mul 1139 212 1486; Mul 1606 231 1139; Mul 1283 626 1662; Sub 1606 1606 1283; Add 1606 1647 1606;
  Sub 1373 1373 1606; Mul 1606 213 1112; Add 1283 1373 1606; Mul 1194 269 1199; Mul 1341 275 1194;
  Mul 1335 629 1382; Add 1323 1341 1335; Mul 1261 631 1650; Mul 1115 269 1519; Mul 1017 282 1115;
  Add 1477 1261 1017; Add 1477 1060 1477; Sub 1323 1323 1477; Mul 1477 213 1118; Add 1165 1323 1477;
  Mul 1278 323 1266; Mul 1223 329 1278; Mul 1554 634 1640; Add 1305 1223 1554; Mul 1469 636 1247;
  Mul 1308 323 1329; Mul 1654 336 1308; Add 1181 1469 1654; Add 1181 1383 1181; Sub 1305 1305 1181;
  Mul 1181 213 1466; Add 1652 1305 1181; Mul 1525 378 1221; Mul 1633 384 1525; Mul 1170 639 1532;
  Add 1604 1633 1170; Mul 1358 641 1332; Mul 1580 378 1517; Mul 1327 391 1580; Add 1259 1358 1327;
  Add 1259 1291 1259; Sub 1604 1604 1259; Mul 1259 213 1219; Add 1473 1604 1259; Mul 1356 430 1252;
  Mul 1297 438 1356; Mul 1195 644 1230; Add 1110 1297 1195; Mul 1588 646 1093; Mul 1675 430 1491;
  Mul 1515 445 1675; Add 1350 1588 1515; Add 1350 1475 1350; Sub 1110 1110 1350; Mul 1350 213 1113;
  Add 1550 1110 1350; Add 1473 1473 1550; Add 1652 1652 1473; Add 1165 1165 1652; Add 1283 1283 1165;
  Mul 1283 540 1283; Mul 1337 628 1539; Sub 1283 1283 1337; Mul 1337 212 1693; Mul 1380 242 1337;
  Mul 1292 650 1359; Sub 1380 1380 1292; Mul 1292 626 1620; Mul 1431 225 1139; Add 1292 1292 1431;
  Add 1292 1248 1292; Sub 1380 1380 1292; Mul 1292 213 1552; Add 1431 1380 1292; Mul 1142 631 1228;
  Mul 1479 271 1115; Add 1548 1142 1479; Sub 1548 1590 1548; Mul 1512 269 1016; Mul 1631 275 1512;
  Mul 1641 655 1382; Add 1346 1631 1641; Add 1548 1548 1346; Mul 1346 213 1363; Sub 1097 1548 1346;
  Mul 1133 636 1400; Mul 1241 325 1308; Add 1503 1133 1241; Sub 1503 1563 1503; Mul 1440 323 1523;
  Mul 1686 329 1440; Mul 1506 659 1640; Add 1489 1686 1506; Add 1503 1503 1489; Mul 1489 213 1602;
  Sub 1352 1503 1489; Mul 1660 641 1224; Mul 1372 381 1580; Add 1697 1660 1372].
Definition casadi_f0_318 : list instruction := [
  Sub 1697 1315 1697; Mul 1034 378 1351; Mul 1419 384 1034; Mul 1051 663 1532; Add 1463 1419 1051;
  Add 1697 1697 1463; Mul 1463 213 1391; Sub 1156 1697 1463; Mul 1151 646 1268; Mul 1284 434 1675;
  Add 1318 1151 1284; Sub 1318 1450 1318; Mul 1384 430 1122; Mul 1643 438 1384; Mul 1535 667 1230;
  Add 1433 1643 1535; Add 1318 1318 1433; Mul 1433 213 1430; Sub 1128 1318 1433; Add 1156 1156 1128;
  Add 1352 1352 1156; Add 1097 1097 1352; Add 1431 1431 1097; Mul 1431 544 1431; Mul 1092 653 1055;
  Add 1431 1431 1092; Add 1283 1283 1431; Sub 1163 1163 1283; Add 1617 1617 1163; Mul 1617 1 1617;
  Mul 1163 509 1374; Add 1617 1617 1163; Add 1490 1490 1617; Mul 1617 602 1436; Mul 1163 216 1169;
  Mul 1283 296 1611; Sub 1163 1163 1283; Mul 1283 517 1163; Add 1617 1617 1283; Mul 1283 670 1496;
  Mul 1431 215 1169; Mul 1092 296 1487; Add 1431 1431 1092; Mul 1092 532 1431; Add 1283 1283 1092;
  Add 1617 1617 1283; Mul 1089 671 1089; Mul 1283 216 1564; Mul 1092 255 1611; Sub 1283 1283 1092;
  Mul 1092 215 1150; Mul 1125 278 1487; Add 1092 1092 1125; Add 1283 1283 1092; Mul 1092 492 1283;
  Add 1089 1089 1092; Sub 1617 1617 1089; Mul 1089 675 1528; Mul 1092 215 1665; Mul 1125 290 1487;
  Add 1092 1092 1125; Mul 1125 674 1169; Mul 1362 216 1509; Mul 1438 274 1611; Add 1362 1362 1438;
  Mul 1438 296 1362; Sub 1125 1125 1438; Mul 1438 676 1564; Mul 1474 215 1474; Mul 1533 270 1487;
  Add 1474 1474 1533; Mul 1129 216 1129; Mul 1533 281 1611; Add 1129 1129 1533; Sub 1474 1474 1129;
  Mul 1129 255 1474; Add 1438 1438 1129; Add 1125 1125 1438; Add 1092 1092 1125; Mul 1125 602 1203;
  Mul 1438 523 1163; Add 1125 1125 1438; Mul 1438 671 1528; Mul 1129 502 1283; Add 1438 1438 1129;
  Add 1125 1125 1438; Sub 1125 1092 1125; Mul 1125 672 1125; Mul 1438 502 1125; Add 1089 1089 1438;
  Mul 1438 679 1543; Mul 1665 216 1665; Mul 1129 290 1611; Sub 1665 1665 1129; Mul 1129 676 1150;
  Mul 1533 278 1474; Add 1129 1129 1533; Mul 1533 680 1169; Mul 1573 274 1487; Mul 1509 215 1509;
  Sub 1573 1573 1509; Mul 1509 296 1573; Add 1533 1533 1509; Add 1129 1129 1533; Sub 1665 1665 1129;
  Mul 1129 671 1543; Mul 1533 505 1283; Add 1129 1129 1533; Mul 1533 670 1203; Mul 1509 523 1431;
  Add 1533 1533 1509; Add 1129 1129 1533; Add 1129 1665 1129; Mul 1129 672 1129; Mul 1533 505 1129;
  Add 1438 1438 1533; Sub 1089 1089 1438; Add 1617 1617 1089; Mul 1165 674 1165; Mul 1089 633 1362;
  Sub 1165 1165 1089; Mul 1097 680 1097; Mul 1089 657 1573; Add 1097 1097 1089; Mul 1115 275 1115;
  Mul 1382 631 1382; Add 1089 1115 1382; Mul 1438 629 1650; Mul 1533 282 1194; Add 1509 1438 1533;
  Mul 1288 655 1228; Mul 1659 271 1512; Add 1671 1288 1659; Add 1382 1382 1115; Add 1115 1671 1382;
  Add 1509 1509 1115; Sub 1081 1089 1509; Add 1533 1533 1438; Add 1659 1659 1288; Add 1089 1659 1089;
  Add 1533 1533 1089; Sub 1382 1382 1533; Sub 1081 1081 1382; Mul 1308 329 1308; Mul 1640 636 1640;
  Add 1382 1308 1640; Mul 1288 634 1247; Mul 1438 336 1278; Add 1311 1288 1438].
Definition casadi_f0_319 : list instruction := [
  Mul 1339 659 1400; Mul 1271 325 1440; Add 1455 1339 1271; Add 1640 1640 1308; Add 1308 1455 1640;
  Add 1311 1311 1308; Sub 1541 1382 1311; Add 1438 1438 1288; Add 1271 1271 1339; Add 1382 1271 1382;
  Add 1438 1438 1382; Sub 1640 1640 1438; Sub 1541 1541 1640; Mul 1580 384 1580; Mul 1532 641 1532;
  Add 1640 1580 1532; Mul 1339 639 1332; Mul 1288 391 1525; Add 1188 1339 1288; Mul 1406 663 1224;
  Mul 1131 381 1034; Add 1171 1406 1131; Add 1532 1532 1580; Add 1580 1171 1532; Add 1188 1188 1580;
  Sub 1245 1640 1188; Add 1288 1288 1339; Add 1131 1131 1406; Add 1640 1131 1640; Add 1288 1288 1640;
  Sub 1532 1532 1288; Sub 1245 1245 1532; Mul 1675 438 1675; Mul 1532 646 1230; Add 1406 1675 1532;
  Mul 1339 644 1093; Mul 1445 445 1356; Add 1277 1339 1445; Mul 1389 667 1268; Mul 1210 434 1384;
  Add 1275 1389 1210; Add 1532 1532 1675; Add 1675 1275 1532; Add 1277 1277 1675; Sub 1301 1406 1277;
  Add 1445 1445 1339; Add 1210 1210 1389; Add 1406 1210 1406; Add 1445 1445 1406; Sub 1532 1532 1445;
  Sub 1301 1301 1532; Add 1245 1245 1301; Add 1541 1541 1245; Add 1081 1081 1541; Mul 1081 676 1081;
  Mul 1532 687 1474; Add 1389 1081 1532; Sub 1097 1097 1389; Add 1165 1165 1097; Mul 1688 215 1688;
  Mul 1097 552 1487; Add 1688 1688 1097; Mul 1325 216 1325; Mul 1097 568 1611; Sub 1325 1325 1097;
  Sub 1688 1688 1325; Add 1165 1165 1688; Add 1617 1617 1165; Mul 1617 2 1617; Mul 1165 649 1646;
  Add 1617 1617 1165; Add 1490 1490 1617; Mul 1127 677 1127; Mul 1617 216 1032; Mul 1165 309 1611;
  Sub 1617 1617 1165; Mul 1165 215 1360; Mul 1688 332 1487; Add 1165 1165 1688; Add 1617 1617 1165;
  Mul 1165 484 1617; Add 1127 1127 1165; Mul 1165 706 1298; Mul 1688 216 1091; Mul 1325 349 1611;
  Sub 1688 1688 1325; Mul 1325 513 1688; Add 1165 1165 1325; Mul 1325 712 1084; Mul 1097 215 1091;
  Mul 1389 349 1487; Add 1097 1097 1389; Mul 1389 530 1097; Add 1325 1325 1389; Add 1165 1165 1325;
  Sub 1127 1127 1165; Mul 1165 711 1696; Mul 1325 706 1154; Mul 1389 519 1688; Add 1325 1325 1389;
  Mul 1389 677 1696; Mul 1339 494 1617; Add 1389 1389 1339; Add 1325 1325 1389; Mul 1389 215 1691;
  Mul 1339 344 1487; Add 1389 1389 1339; Mul 1339 714 1091; Mul 1484 216 1208; Mul 1690 328 1611;
  Sub 1484 1484 1690; Mul 1690 349 1484; Add 1339 1339 1690; Mul 1690 716 1032; Mul 1289 216 1289;
  Mul 1576 335 1611; Sub 1289 1289 1576; Mul 1130 215 1130; Mul 1576 324 1487; Add 1130 1130 1576;
  Add 1289 1289 1130; Mul 1130 309 1289; Add 1690 1690 1130; Add 1339 1339 1690; Add 1389 1389 1339;
  Sub 1325 1325 1389; Mul 1325 156 1325; Mul 1339 494 1325; Add 1165 1165 1339; Mul 1339 719 1425;
  Mul 1690 716 1360; Mul 1130 332 1289; Add 1690 1690 1130; Mul 1130 718 1091; Mul 1208 215 1208;
  Mul 1576 328 1487; Add 1208 1208 1576; Mul 1576 349 1208; Add 1130 1130 1576; Add 1690 1690 1130;
  Mul 1691 216 1691; Mul 1130 344 1611; Sub 1691 1691 1130; Sub 1690 1690 1691; Mul 1691 677 1425;
  Mul 1130 497 1617; Add 1691 1691 1130; Mul 1130 712 1154; Mul 1576 519 1097].
Definition casadi_f0_320 : list instruction := [
  Add 1130 1130 1576; Add 1691 1691 1130; Sub 1691 1690 1691; Mul 1691 156 1691; Mul 1130 497 1691;
  Add 1339 1339 1130; Sub 1165 1165 1339; Add 1127 1127 1165; Mul 1541 716 1541; Mul 1165 694 1289;
  Add 1339 1541 1165; Mul 1352 718 1352; Mul 1130 661 1208; Add 1352 1352 1130; Sub 1339 1339 1352;
  Mul 1652 714 1652; Mul 1352 638 1484; Add 1652 1652 1352; Sub 1339 1339 1652; Mul 1673 216 1673;
  Mul 1652 582 1611; Sub 1673 1673 1652; Mul 1427 215 1427; Mul 1652 618 1487; Add 1427 1427 1652;
  Sub 1673 1673 1427; Add 1339 1339 1673; Add 1127 1127 1339; Mul 1127 3 1127; Mul 1339 681 1439;
  Add 1127 1127 1339; Add 1490 1490 1127; Mul 1127 715 1586; Mul 1339 327 1330; Mul 1673 405 1147;
  Add 1339 1339 1673; Mul 1673 318 1402; Mul 1427 387 1526; Add 1673 1673 1427; Sub 1339 1339 1673;
  Mul 1673 510 1339; Add 1127 1127 1673; Mul 1673 721 1274; Mul 1427 318 1388; Mul 1652 363 1526;
  Add 1427 1427 1652; Mul 1652 310 1330; Mul 1352 405 1452; Add 1652 1652 1352; Sub 1427 1427 1652;
  Mul 1652 528 1427; Add 1673 1673 1652; Add 1127 1127 1673; Mul 1673 722 1682; Mul 1652 310 1402;
  Mul 1352 387 1452; Add 1652 1652 1352; Mul 1352 327 1388; Mul 1130 363 1147; Add 1352 1352 1130;
  Sub 1652 1652 1352; Mul 1352 479 1652; Add 1673 1673 1352; Add 1127 1127 1673; Mul 1673 726 1492;
  Mul 1352 318 1369; Mul 1130 404 1526; Add 1352 1352 1130; Mul 1130 310 1700; Mul 1576 399 1452;
  Add 1130 1130 1576; Sub 1352 1352 1130; Mul 1130 725 1330; Mul 1576 327 1319; Mul 1603 383 1147;
  Add 1576 1576 1603; Mul 1603 318 1417; Mul 1182 379 1526; Add 1603 1603 1182; Sub 1576 1576 1603;
  Mul 1603 405 1576; Add 1130 1130 1603; Mul 1603 727 1388; Mul 1417 310 1417; Mul 1182 379 1452;
  Add 1417 1417 1182; Mul 1182 327 1250; Mul 1387 390 1147; Add 1182 1182 1387; Sub 1417 1417 1182;
  Mul 1182 363 1417; Add 1603 1603 1182; Sub 1130 1130 1603; Add 1352 1352 1130; Mul 1130 715 1581;
  Mul 1603 515 1339; Add 1130 1130 1603; Mul 1603 722 1492; Mul 1182 486 1652; Add 1603 1603 1182;
  Sub 1130 1130 1603; Sub 1130 1352 1130; Mul 1130 723 1130; Mul 1603 486 1130; Add 1673 1673 1603;
  Mul 1603 730 1242; Mul 1700 327 1700; Mul 1182 399 1147; Add 1700 1700 1182; Mul 1182 318 1561;
  Mul 1387 408 1526; Add 1182 1182 1387; Sub 1700 1700 1182; Mul 1182 727 1402; Mul 1387 387 1417;
  Add 1182 1182 1387; Mul 1387 731 1330; Mul 1250 318 1250; Mul 1434 390 1526; Add 1250 1250 1434;
  Mul 1319 310 1319; Mul 1434 383 1452; Add 1319 1319 1434; Sub 1250 1250 1319; Mul 1319 405 1250;
  Add 1387 1387 1319; Sub 1182 1182 1387; Add 1700 1700 1182; Mul 1182 722 1242; Mul 1387 489 1652;
  Add 1182 1182 1387; Mul 1387 721 1581; Mul 1319 515 1427; Add 1387 1387 1319; Sub 1182 1182 1387;
  Sub 1182 1700 1182; Mul 1182 723 1182; Mul 1387 489 1182; Add 1603 1603 1387; Sub 1673 1673 1603;
  Add 1127 1127 1673; Mul 1673 725 1473; Mul 1603 643 1576; Add 1673 1673 1603; Mul 1603 731 1156;
  Mul 1387 665 1250; Add 1603 1603 1387; Mul 1387 727 1245; Mul 1319 701 1417].
Definition casadi_f0_321 : list instruction := [
  Add 1434 1387 1319; Add 1603 1603 1434; Add 1673 1673 1603; Mul 1603 310 1497; Mul 1434 620 1452;
  Add 1603 1603 1434; Mul 1434 327 1237; Mul 1679 595 1147; Add 1434 1434 1679; Mul 1104 318 1104;
  Mul 1679 395 1526; Add 1461 1104 1679; Add 1434 1434 1461; Add 1603 1603 1434; Sub 1673 1673 1603;
  Add 1127 1127 1673; Mul 1673 4 1127; Mul 1603 720 1344; Add 1673 1673 1603; Add 1490 1490 1673;
  Mul 1673 728 1096; Mul 1603 372 1354; Mul 1434 459 1498; Add 1603 1603 1434; Mul 1434 369 1019;
  Mul 1461 441 1415; Add 1434 1434 1461; Sub 1603 1603 1434; Mul 1434 443 1603; Add 1673 1673 1434;
  Mul 1434 733 1677; Mul 1461 369 1401; Mul 1285 417 1415; Add 1461 1461 1285; Mul 1285 358 1354;
  Mul 1423 459 1594; Add 1285 1285 1423; Sub 1461 1461 1285; Mul 1285 426 1461; Add 1434 1434 1285;
  Add 1673 1673 1434; Mul 1434 734 1495; Mul 1285 358 1019; Mul 1423 441 1594; Add 1285 1285 1423;
  Mul 1423 372 1401; Mul 1656 417 1498; Add 1423 1423 1656; Sub 1285 1285 1423; Mul 1423 478 1285;
  Add 1434 1434 1423; Add 1673 1673 1434; Mul 1434 735 1093; Mul 1423 369 1645; Mul 1656 458 1415;
  Add 1423 1423 1656; Mul 1656 358 1412; Mul 1514 451 1594; Add 1656 1656 1514; Sub 1423 1423 1656;
  Mul 1656 736 1354; Mul 1514 372 1655; Mul 1507 437 1498; Add 1514 1514 1507; Mul 1507 369 1343;
  Mul 1625 432 1415; Add 1507 1507 1625; Sub 1514 1514 1507; Mul 1507 459 1514; Add 1656 1656 1507;
  Mul 1507 738 1401; Mul 1343 358 1343; Mul 1625 432 1594; Add 1343 1343 1625; Mul 1625 372 1670;
  Mul 1695 444 1498; Add 1625 1625 1695; Sub 1343 1343 1625; Mul 1625 417 1343; Add 1507 1507 1625;
  Sub 1656 1656 1507; Add 1423 1423 1656; Mul 1656 728 1230; Mul 1507 438 1603; Add 1656 1656 1507;
  Mul 1507 734 1093; Mul 1625 445 1285; Add 1507 1507 1625; Sub 1656 1656 1507; Sub 1423 1423 1656;
  Mul 1423 430 1423; Mul 1656 445 1423; Add 1434 1434 1656; Mul 1656 739 1268; Mul 1412 372 1412;
  Mul 1507 451 1498; Add 1412 1412 1507; Mul 1507 369 1026; Mul 1625 462 1415; Add 1507 1507 1625;
  Sub 1412 1412 1507; Mul 1507 738 1019; Mul 1625 441 1343; Add 1507 1507 1625; Mul 1625 741 1354;
  Mul 1670 369 1670; Mul 1695 444 1415; Add 1670 1670 1695; Mul 1655 358 1655; Mul 1695 437 1594;
  Add 1655 1655 1695; Sub 1670 1670 1655; Mul 1655 459 1670; Add 1625 1625 1655; Sub 1507 1507 1625;
  Add 1412 1412 1507; Mul 1507 734 1268; Mul 1625 434 1285; Add 1507 1507 1625; Mul 1625 733 1230;
  Mul 1655 438 1461; Add 1625 1625 1655; Sub 1507 1507 1625; Sub 1412 1412 1507; Mul 1412 430 1412;
  Mul 1507 434 1412; Add 1656 1656 1507; Sub 1434 1434 1656; Add 1673 1673 1434; Mul 1434 736 1550;
  Mul 1656 648 1514; Add 1434 1434 1656; Mul 1656 741 1128; Mul 1507 669 1670; Add 1656 1656 1507;
  Mul 1507 738 1301; Mul 1625 708 1343; Add 1655 1507 1625; Add 1656 1656 1655; Add 1434 1434 1656;
  Mul 1656 358 1481; Mul 1655 622 1594; Add 1656 1656 1655; Mul 1655 372 1345; Mul 1695 608 1498;
  Add 1655 1655 1695; Mul 1149 369 1149; Mul 1695 449 1415; Add 1246 1149 1695].
Definition casadi_f0_322 : list instruction := [
  Add 1655 1655 1246; Add 1656 1656 1655; Sub 1434 1434 1656; Add 1673 1673 1434; Mul 1434 5 1673;
  Mul 1656 732 1148; Add 1434 1434 1656; Add 1490 1490 1434; Mul 1434 286 1135; Mul 1656 212 1434;
  Mul 1656 107 1656; Mul 1655 745 1657; Mul 1246 737 1657; Mul 1572 9 1434; Add 1246 1246 1572;
  Mul 1572 743 1211; Mul 1607 286 1560; Mul 1322 8 1607; Add 1572 1572 1322; Sub 1246 1246 1572;
  Mul 1572 269 1246; Mul 1322 81 1572; Mul 1030 746 1145; Mul 1377 743 1657; Mul 1453 9 1607;
  Sub 1377 1377 1453; Mul 1434 8 1434; Mul 1453 737 1211; Sub 1434 1434 1453; Sub 1377 1377 1434;
  Mul 1434 53 1377; Add 1030 1030 1434; Mul 1434 66 1246; Mul 1453 742 1049; Sub 1434 1434 1453;
  Add 1030 1030 1434; Mul 1434 323 1030; Mul 1453 47 1434; Mul 1639 378 1030; Mul 1099 24 1639;
  Mul 1240 752 1392; Mul 1568 66 1377; Mul 1562 746 1049; Sub 1568 1568 1562; Mul 1562 742 1145;
  Mul 1246 53 1246; Add 1562 1562 1246; Sub 1568 1568 1562; Mul 1562 35 1568; Add 1240 1240 1562;
  Mul 1562 378 1240; Mul 1246 31 1562; Sub 1099 1099 1246; Mul 1246 753 1226; Mul 1234 15 1240;
  Add 1246 1246 1234; Mul 1234 16 1030; Mul 1407 747 1638; Sub 1234 1234 1407; Add 1246 1246 1234;
  Mul 1246 430 1246; Mul 1234 26 1246; Mul 1240 16 1240; Mul 1407 753 1638; Sub 1240 1240 1407;
  Mul 1407 747 1226; Mul 1030 15 1030; Add 1407 1407 1030; Sub 1240 1240 1407; Mul 1240 430 1240;
  Mul 1407 28 1240; Sub 1234 1234 1407; Mul 1407 16 1246; Mul 1030 755 1638; Sub 1407 1407 1030;
  Mul 1030 757 1226; Mul 1621 15 1240; Add 1030 1030 1621; Sub 1407 1407 1030; Mul 1030 25 1407;
  Mul 1621 16 1240; Mul 1610 757 1638; Sub 1621 1621 1610; Mul 1610 755 1226; Mul 1232 15 1246;
  Add 1610 1610 1232; Add 1621 1621 1610; Mul 1610 32 1621; Sub 1030 1030 1610; Add 1030 1234 1030;
  Add 1099 1099 1030; Mul 1030 19 1099; Mul 1610 751 1521; Sub 1030 1030 1610; Mul 1610 763 1392;
  Mul 1232 19 1568; Mul 1680 752 1521; Sub 1232 1232 1680; Mul 1680 378 1232; Mul 1021 31 1680;
  Mul 1076 380 1639; Sub 1021 1021 1076; Mul 1232 430 1232; Mul 1076 28 1232; Mul 1246 433 1246;
  Sub 1076 1076 1246; Mul 1246 16 1076; Mul 1692 764 1638; Sub 1246 1246 1692; Mul 1692 766 1226;
  Mul 1240 433 1240; Mul 1047 26 1232; Sub 1240 1240 1047; Mul 1047 15 1240; Add 1692 1692 1047;
  Add 1246 1246 1692; Mul 1692 32 1232; Mul 1047 198 1407; Sub 1692 1692 1047; Add 1246 1246 1692;
  Add 1021 1021 1246; Mul 1246 35 1021; Add 1610 1610 1246; Add 1030 1030 1610; Add 1639 1639 1407;
  Mul 1407 48 1639; Add 1610 1562 1621; Mul 1246 19 1610; Mul 1692 765 1521; Sub 1246 1246 1692;
  Mul 1692 768 1392; Add 1047 1680 1232; Mul 1702 35 1047; Add 1692 1692 1702; Sub 1246 1246 1692;
  Mul 1692 55 1246; Sub 1407 1407 1692; Add 1030 1030 1407; Add 1453 1453 1030; Mul 1030 66 1453;
  Mul 1407 749 1049; Sub 1030 1030 1407; Mul 1407 762 1145; Mul 1562 380 1562; Mul 1680 24 1680;
  Sub 1562 1562 1680; Mul 1240 16 1240; Mul 1638 766 1638; Sub 1240 1240 1638].
Definition casadi_f0_323 : list instruction := [
  Mul 1226 764 1226; Mul 1076 15 1076; Add 1226 1226 1076; Sub 1240 1240 1226; Mul 1621 198 1621;
  Mul 1232 25 1232; Sub 1621 1621 1232; Add 1240 1240 1621; Add 1562 1562 1240; Mul 1240 62 1246;
  Mul 1047 19 1047; Mul 1621 768 1521; Sub 1047 1047 1621; Mul 1621 765 1392; Mul 1610 35 1610;
  Add 1621 1621 1610; Add 1047 1047 1621; Mul 1621 48 1047; Sub 1240 1240 1621; Add 1240 1562 1240;
  Mul 1568 323 1568; Mul 1621 47 1568; Sub 1240 1240 1621; Mul 1621 53 1240; Add 1407 1407 1621;
  Add 1030 1030 1407; Mul 1407 86 1246; Sub 1030 1030 1407; Add 1322 1322 1030; Mul 1030 9 1322;
  Add 1655 1655 1030; Mul 1240 66 1240; Mul 1030 762 1049; Sub 1240 1240 1030; Mul 1030 749 1145;
  Mul 1453 53 1453; Add 1030 1030 1453; Sub 1240 1240 1030; Mul 1030 91 1246; Add 1240 1240 1030;
  Mul 1377 269 1377; Mul 1030 81 1377; Sub 1240 1240 1030; Mul 1030 8 1240; Mul 1453 758 1211;
  Sub 1030 1030 1453; Add 1655 1655 1030; Mul 1246 102 1246; Add 1030 1568 1047; Mul 1453 66 1030;
  Mul 1407 770 1049; Sub 1453 1453 1407; Mul 1407 772 1145; Add 1621 1434 1639; Mul 1610 53 1621;
  Add 1407 1407 1610; Add 1453 1453 1407; Add 1407 1377 1453; Mul 1610 8 1407; Mul 1232 773 1211;
  Sub 1610 1610 1232; Mul 1232 776 1657; Mul 1621 66 1621; Mul 1049 772 1049; Sub 1621 1621 1049;
  Mul 1145 770 1145; Mul 1030 53 1030; Add 1145 1145 1030; Sub 1621 1621 1145; Add 1145 1572 1621;
  Mul 1030 9 1145; Add 1232 1232 1030; Sub 1610 1610 1232; Mul 1610 108 1610; Sub 1246 1246 1610;
  Add 1655 1655 1246; Add 1656 1656 1655; Mul 1656 114 1656; Mul 1560 740 1560; Sub 1656 1656 1560;
  Mul 1135 774 1135; Mul 1322 8 1322; Mul 1560 745 1211; Sub 1322 1322 1560; Mul 1560 758 1657; Mul 1240 9 1240;
  Add 1560 1560 1240; Sub 1322 1322 1560; Mul 1657 773 1657; Mul 1407 9 1407; Add 1657 1657 1407;
  Mul 1145 8 1145; Mul 1211 776 1211; Sub 1145 1145 1211; Add 1657 1657 1145; Mul 1145 108 1657;
  Add 1322 1322 1145; Mul 1607 212 1607; Mul 1145 107 1607; Sub 1322 1322 1145; Mul 1322 113 1322;
  Add 1135 1135 1322; Sub 1656 1656 1135; Add 1490 1490 1656; Mul 1656 210 1490; Sub 1676 1676 1656;
  Div 1656 1159 92; Mul 1135 1069 1037; Sub 1656 1656 1135; Mul 1135 779 1656; Add 1117 1117 1098;
  Add 1164 1164 1669; Sub 1117 1117 1164; Add 1052 1052 1648; Add 1684 1684 1371; Sub 1052 1052 1684;
  Add 1200 1200 1052; Sub 1117 1117 1200; Add 1117 1117 1636; Add 1556 1556 1420; Add 1162 1162 1180;
  Sub 1556 1556 1162; Add 1689 1689 1628; Add 1119 1119 1152; Add 1689 1689 1119; Add 1538 1538 1504;
  Add 1279 1279 1467; Sub 1538 1538 1279; Add 1689 1689 1538; Sub 1556 1556 1689; Add 1556 1556 1251;
  Add 1485 1485 1608; Add 1321 1321 1215; Sub 1485 1485 1321; Add 1599 1599 1501; Add 1565 1565 1102;
  Add 1599 1599 1565; Add 1233 1233 1443; Add 1544 1544 1144; Sub 1233 1233 1544; Add 1599 1599 1233;
  Sub 1485 1485 1599; Add 1485 1485 1124; Add 1642 1642 1471; Add 1107 1107 1386; Sub 1642 1642 1107;
  Add 1416 1416 1347; Add 1272 1272 1038; Add 1416 1416 1272].
Definition casadi_f0_324 : list instruction := [
  Add 1295 1295 1570; Add 1270 1270 1280; Sub 1295 1295 1270; Add 1416 1416 1295; Sub 1642 1642 1416;
  Add 1642 1642 1502; Add 1368 1368 1575; Add 1314 1314 1361; Sub 1368 1368 1314; Add 1478 1478 1458;
  Add 1348 1348 1449; Add 1478 1478 1348; Add 1176 1176 1500; Add 1355 1355 1378; Sub 1176 1176 1355;
  Add 1478 1478 1176; Sub 1368 1368 1478; Add 1368 1368 1326; Add 1642 1642 1368; Add 1485 1485 1642;
  Add 1556 1556 1485; Add 1117 1117 1556; Mul 1117 216 1117; Mul 1326 780 1611; Sub 1117 1117 1326;
  Mul 1326 781 1487; Add 1086 1086 1399; Add 1494 1494 1244; Sub 1086 1086 1494; Sub 1313 1313 1086;
  Add 1582 1582 1613; Add 1396 1396 1587; Sub 1582 1582 1396; Add 1313 1313 1582; Sub 1313 1313 1088;
  Add 1100 1100 1167; Add 1476 1476 1281; Sub 1100 1100 1476; Add 1442 1442 1527; Add 1447 1447 1205;
  Add 1442 1442 1447; Add 1201 1201 1595; Add 1300 1300 1146; Sub 1201 1201 1300; Add 1442 1442 1201;
  Sub 1100 1100 1442; Sub 1100 1100 1664; Add 1557 1557 1267; Add 1480 1480 1698; Sub 1557 1557 1480;
  Add 1432 1432 1483; Add 1465 1465 1540; Add 1432 1432 1465; Add 1204 1204 1558; Add 1213 1213 1193;
  Sub 1204 1204 1213; Add 1432 1432 1204; Sub 1557 1557 1432; Sub 1557 1557 1140; Add 1324 1324 1687;
  Add 1464 1464 1597; Sub 1324 1324 1464; Add 1317 1317 1108; Add 1441 1441 1395; Add 1317 1317 1441;
  Add 1253 1253 1448; Add 1116 1116 1574; Sub 1253 1253 1116; Add 1317 1317 1253; Sub 1324 1324 1317;
  Sub 1324 1324 1190; Add 1584 1584 1120; Add 1227 1227 1090; Sub 1584 1584 1227; Add 1106 1106 1520;
  Add 1191 1191 1403; Add 1106 1106 1191; Add 1410 1410 1376; Add 1644 1644 1225; Sub 1410 1410 1644;
  Add 1106 1106 1410; Sub 1584 1584 1106; Sub 1584 1584 1421; Add 1324 1324 1584; Add 1557 1557 1324;
  Add 1100 1100 1557; Add 1313 1313 1100; Mul 1313 215 1313; Add 1326 1326 1313; Sub 1117 1117 1326;
  Sub 1373 1373 1606; Sub 1323 1323 1477; Sub 1305 1305 1181; Sub 1604 1604 1259; Sub 1110 1110 1350;
  Add 1604 1604 1110; Add 1305 1305 1604; Add 1323 1323 1305; Add 1373 1373 1323; Mul 1373 540 1373;
  Mul 1606 625 1539; Sub 1373 1373 1606; Mul 1606 651 1055; Sub 1380 1380 1292; Add 1548 1548 1346;
  Add 1503 1503 1489; Add 1697 1697 1463; Add 1318 1318 1433; Add 1697 1697 1318; Add 1503 1503 1697;
  Add 1548 1548 1503; Add 1380 1380 1548; Mul 1380 544 1380; Add 1606 1606 1380; Add 1373 1373 1606;
  Sub 1117 1117 1373; Mul 1117 0 1117; Mul 1373 23 1482; Add 1117 1117 1373; Mul 1622 508 1622;
  Mul 1373 534 1276; Add 1622 1622 1373; Add 1424 1424 1398; Mul 1185 482 1185; Mul 1257 511 1257;
  Add 1185 1185 1257; Sub 1424 1424 1185; Add 1196 1196 1424; Mul 1269 490 1269; Mul 1333 514 1333;
  Add 1269 1269 1333; Sub 1196 1196 1269; Add 1601 1601 1196; Mul 1256 498 1256; Mul 1218 518 1218;
  Add 1256 1256 1218; Sub 1601 1601 1256; Add 1666 1666 1601; Mul 1468 522 1468; Mul 1559 506 1559;
  Sub 1468 1468 1559; Sub 1666 1666 1468; Mul 1468 526 1666; Mul 1559 784 1340; Add 1468 1468 1559;
  Add 1457 1457 1571; Mul 1087 1304 1087; Add 1451 1451 1087; Mul 1451 20 1451].
Definition casadi_f0_325 : list instruction := [
  Add 1457 1457 1451; Add 1605 1605 1457; Mul 1699 1153 1699; Add 1537 1537 1699; Mul 1537 37 1537;
  Add 1605 1605 1537; Add 1663 1663 1605; Mul 1422 1212 1422; Add 1192 1192 1422; Mul 1192 80 1192;
  Add 1663 1663 1192; Add 1365 1365 1663; Mul 1634 1293 1634; Add 1161 1161 1634; Mul 1161 100 1161;
  Sub 1365 1365 1161; Mul 1365 536 1365; Mul 1161 496 1511; Add 1365 1365 1161; Add 1468 1468 1365;
  Sub 1622 1622 1468; Mul 1468 546 1296; Mul 1365 538 1079; Add 1468 1468 1365; Mul 1365 791 1173;
  Mul 1338 215 1338; Mul 1161 222 1487; Add 1338 1338 1161; Mul 1668 216 1668; Mul 1161 229 1611;
  Sub 1668 1668 1161; Sub 1338 1338 1668; Mul 1668 540 1624; Mul 1161 227 1539; Sub 1668 1668 1161;
  Mul 1161 544 1674; Mul 1192 219 1055; Add 1161 1161 1192; Sub 1668 1668 1161; Add 1338 1338 1668;
  Mul 1668 526 1202; Mul 1161 543 1340; Add 1668 1668 1161; Mul 1173 536 1173; Mul 1161 537 1511;
  Add 1173 1173 1161; Sub 1668 1668 1173; Sub 1668 1338 1668; Mul 1668 141 1668; Mul 1173 537 1668;
  Add 1365 1365 1173; Sub 1468 1468 1365; Add 1622 1622 1468; Mul 1468 556 1486; Mul 1456 560 1456;
  Add 1365 1468 1456; Sub 1600 1365 1600; Sub 1231 1459 1231; Sub 1111 1157 1111; Add 1231 1231 1111;
  Add 1456 1456 1468; Sub 1460 1460 1456; Add 1231 1231 1460; Sub 1600 1600 1231; Mul 1231 570 1519;
  Mul 1583 574 1583; Add 1460 1231 1583; Sub 1370 1460 1370; Sub 1309 1309 1168; Sub 1367 1367 1175;
  Add 1309 1309 1367; Add 1583 1583 1231; Sub 1287 1287 1583; Add 1309 1309 1287; Sub 1370 1370 1309;
  Mul 1309 584 1329; Mul 1238 588 1238; Add 1287 1309 1238; Sub 1635 1287 1635; Sub 1187 1187 1444;
  Sub 1409 1409 1567; Add 1187 1187 1409; Add 1238 1238 1309; Sub 1018 1018 1238; Add 1187 1187 1018;
  Sub 1635 1635 1187; Mul 1187 597 1517; Mul 1177 601 1177; Add 1018 1187 1177; Sub 1593 1018 1593;
  Sub 1353 1353 1651; Sub 1542 1542 1036; Add 1353 1353 1542; Add 1177 1177 1187; Sub 1302 1302 1177;
  Add 1353 1353 1302; Sub 1593 1593 1353; Mul 1353 610 1491; Mul 1616 614 1616; Add 1302 1353 1616;
  Sub 1143 1302 1143; Sub 1701 1701 1071; Sub 1627 1627 1555; Add 1701 1701 1627; Add 1616 1616 1353;
  Sub 1653 1653 1616; Add 1701 1701 1653; Sub 1143 1143 1701; Add 1593 1593 1143; Add 1635 1635 1593;
  Add 1370 1370 1635; Add 1600 1600 1370; Mul 1600 216 1600; Mul 1701 251 1611; Sub 1600 1600 1701;
  Mul 1701 230 1620; Mul 1248 225 1248; Add 1653 1701 1248; Mul 1647 231 1647; Mul 1353 223 1662;
  Sub 1647 1647 1353; Sub 1653 1653 1647; Mul 1393 560 1393; Mul 1353 553 1486; Add 1627 1393 1353;
  Mul 1589 244 1589; Mul 1693 248 1693; Add 1555 1589 1693; Sub 1627 1627 1555; Sub 1653 1653 1627;
  Mul 1486 558 1486; Mul 1183 560 1183; Add 1627 1486 1183; Mul 1075 243 1075; Mul 1263 249 1263;
  Add 1555 1075 1263; Sub 1627 1627 1555; Add 1653 1653 1627; Mul 1282 219 1282; Mul 1674 239 1674;
  Add 1282 1282 1674; Mul 1189 227 1189; Mul 1624 246 1624; Add 1189 1189 1624; Add 1282 1282 1189;
  Mul 1216 467 1216; Mul 1094 525 1094; Sub 1216 1216 1094; Add 1282 1282 1216].
Definition casadi_f0_326 : list instruction := [
  Mul 1112 231 1112; Mul 1216 559 1662; Sub 1112 1112 1216; Mul 1216 616 1620; Mul 1552 225 1552;
  Add 1216 1216 1552; Add 1112 1112 1216; Add 1282 1282 1112; Mul 1282 213 1282; Sub 1653 1653 1282;
  Mul 1112 572 1519; Mul 1577 574 1577; Add 1216 1112 1577; Mul 1199 284 1199; Mul 1316 258 1316;
  Add 1552 1199 1316; Sub 1216 1216 1552; Mul 1552 297 1228; Mul 1094 271 1590; Add 1189 1552 1094;
  Mul 1624 282 1060; Mul 1674 300 1650; Add 1627 1624 1674; Add 1189 1189 1627; Mul 1522 574 1522;
  Mul 1519 567 1519; Add 1627 1522 1519; Mul 1141 279 1141; Mul 1016 276 1016; Add 1555 1141 1016;
  Sub 1627 1627 1555; Add 1189 1189 1627; Sub 1216 1216 1189; Mul 1137 255 1137; Mul 1189 280 1564;
  Add 1137 1137 1189; Mul 1609 278 1609; Mul 1189 266 1150; Add 1609 1609 1189; Add 1137 1137 1609;
  Mul 1518 296 1518; Mul 1169 472 1169; Add 1518 1518 1169; Add 1137 1137 1518; Mul 1518 573 1650;
  Mul 1118 282 1118; Add 1518 1518 1118; Mul 1118 617 1228; Mul 1363 271 1363; Add 1118 1118 1363;
  Sub 1518 1518 1118; Add 1137 1137 1518; Mul 1137 213 1137; Sub 1216 1216 1137; Mul 1518 586 1329;
  Mul 1025 588 1025; Add 1118 1518 1025; Mul 1266 338 1266; Mul 1172 312 1172; Add 1363 1266 1172;
  Sub 1118 1118 1363; Mul 1363 351 1400; Mul 1169 325 1563; Add 1609 1363 1169; Mul 1189 336 1383;
  Mul 1627 354 1247; Add 1555 1189 1627; Add 1609 1609 1555; Mul 1510 588 1510; Mul 1329 581 1329;
  Add 1555 1510 1329; Mul 1549 333 1549; Mul 1523 330 1523; Add 1071 1549 1523; Sub 1555 1555 1071;
  Add 1609 1609 1555; Sub 1118 1118 1609; Mul 1545 309 1545; Mul 1609 334 1032; Add 1545 1545 1609;
  Mul 1394 332 1394; Mul 1609 320 1360; Add 1394 1394 1609; Add 1545 1545 1394; Mul 1103 349 1103;
  Mul 1091 474 1091; Add 1103 1103 1091; Add 1545 1545 1103; Mul 1103 587 1247; Mul 1466 336 1466;
  Add 1103 1103 1466; Mul 1466 619 1400; Mul 1602 325 1602; Add 1466 1466 1602; Sub 1103 1103 1466;
  Add 1545 1545 1103; Mul 1545 213 1545; Sub 1118 1118 1545; Mul 1103 599 1517; Mul 1022 601 1022;
  Add 1466 1103 1022; Mul 1221 393 1221; Mul 1114 366 1114; Add 1602 1221 1114; Sub 1466 1466 1602;
  Mul 1602 406 1224; Mul 1091 381 1315; Add 1394 1602 1091; Mul 1609 391 1291; Mul 1555 409 1332;
  Add 1071 1609 1555; Add 1394 1394 1071; Mul 1513 601 1513; Mul 1517 594 1517; Add 1071 1513 1517;
  Mul 1547 388 1547; Mul 1351 385 1351; Add 1187 1547 1351; Sub 1071 1071 1187; Add 1394 1394 1071;
  Sub 1466 1466 1394; Mul 1255 363 1255; Mul 1394 389 1388; Add 1255 1255 1394; Mul 1062 387 1062;
  Mul 1394 374 1402; Add 1062 1062 1394; Add 1255 1255 1062; Mul 1598 405 1598; Mul 1330 476 1330;
  Add 1598 1598 1330; Add 1255 1255 1598; Mul 1598 600 1332; Mul 1219 391 1219; Add 1598 1598 1219;
  Mul 1219 621 1224; Mul 1391 381 1391; Add 1219 1219 1391; Sub 1598 1598 1219; Add 1255 1255 1598;
  Mul 1255 213 1255; Sub 1466 1466 1255; Mul 1598 612 1491; Mul 1209 614 1209; Add 1219 1598 1209;
  Mul 1252 447 1252; Mul 1546 420 1546; Add 1391 1252 1546; Sub 1219 1219 1391].
Definition casadi_f0_327 : list instruction := [
  Mul 1391 460 1268; Mul 1330 434 1450; Add 1062 1391 1330; Mul 1394 445 1475; Mul 1071 463 1093;
  Add 1187 1394 1071; Add 1062 1062 1187; Mul 1123 614 1123; Mul 1491 607 1491; Add 1187 1123 1491;
  Mul 1229 442 1229; Mul 1122 439 1122; Add 1542 1229 1122; Sub 1187 1187 1542; Add 1062 1062 1187;
  Sub 1219 1219 1062; Mul 1062 417 1096; Mul 1187 443 1401; Add 1062 1062 1187; Mul 1187 441 1677;
  Mul 1542 426 1019; Add 1187 1187 1542; Add 1062 1062 1187; Mul 1187 459 1495; Mul 1354 478 1354;
  Add 1187 1187 1354; Add 1062 1062 1187; Mul 1187 611 1093; Mul 1113 445 1113; Add 1187 1187 1113;
  Mul 1113 623 1268; Mul 1430 434 1430; Add 1113 1113 1430; Sub 1187 1187 1113; Add 1062 1062 1187;
  Mul 1062 213 1062; Sub 1219 1219 1062; Add 1466 1466 1219; Add 1118 1118 1466; Add 1216 1216 1118;
  Add 1653 1653 1216; Mul 1653 215 1653; Mul 1187 470 1487; Add 1653 1653 1187; Sub 1600 1600 1653;
  Mul 1653 225 1166; Mul 1187 624 1620; Add 1113 1653 1187; Mul 1430 231 1337; Mul 1354 650 1662;
  Sub 1430 1430 1354; Sub 1113 1113 1430; Mul 1658 213 1658; Add 1354 1113 1658; Mul 1650 655 1650;
  Mul 1512 282 1512; Add 1542 1650 1512; Sub 1542 1454 1542; Mul 1194 271 1194; Mul 1228 629 1228;
  Add 1036 1194 1228; Add 1542 1542 1036; Mul 1101 213 1101; Sub 1036 1542 1101; Mul 1247 659 1247;
  Mul 1440 336 1440; Add 1651 1247 1440; Sub 1651 1499 1651; Mul 1278 325 1278; Mul 1400 634 1400;
  Add 1309 1278 1400; Add 1651 1651 1309; Mul 1105 213 1105; Sub 1309 1651 1105; Mul 1332 663 1332;
  Mul 1034 391 1034; Add 1409 1332 1034; Sub 1409 1551 1409; Mul 1525 381 1525; Mul 1224 639 1224;
  Add 1567 1525 1224; Add 1409 1409 1567; Mul 1566 213 1566; Sub 1567 1409 1566; Mul 1444 667 1093;
  Mul 1384 445 1384; Add 1231 1444 1384; Sub 1231 1109 1231; Mul 1356 434 1356; Mul 1367 644 1268;
  Add 1175 1356 1367; Add 1231 1231 1175; Mul 1254 213 1254; Sub 1175 1231 1254; Add 1567 1567 1175;
  Add 1309 1309 1567; Add 1036 1036 1309; Add 1354 1354 1036; Mul 1354 540 1354; Mul 1168 250 1539;
  Sub 1354 1354 1168; Mul 1337 225 1337; Mul 1620 650 1620; Add 1168 1337 1620; Mul 1166 231 1166;
  Mul 1662 624 1662; Sub 1166 1166 1662; Add 1620 1620 1337; Mul 1139 242 1139; Mul 1359 626 1359;
  Sub 1139 1139 1359; Add 1359 1620 1139; Add 1337 1166 1359; Sub 1337 1168 1337; Add 1168 1168 1139;
  Add 1166 1166 1168; Sub 1620 1620 1166; Sub 1337 1337 1620; Sub 1659 1659 1509; Sub 1671 1671 1533;
  Sub 1659 1659 1671; Sub 1271 1271 1311; Sub 1455 1455 1438; Sub 1271 1271 1455; Sub 1131 1131 1188;
  Sub 1171 1171 1288; Sub 1131 1131 1171; Sub 1210 1210 1277; Sub 1275 1275 1445; Sub 1210 1210 1275;
  Add 1131 1131 1210; Add 1271 1271 1131; Add 1659 1659 1271; Add 1337 1337 1659; Mul 1275 544 1337;
  Mul 1445 806 1055; Add 1275 1275 1445; Add 1354 1354 1275; Sub 1600 1600 1354; Add 1622 1622 1600;
  Mul 1622 216 1622; Mul 1600 652 1611; Sub 1622 1622 1600; Mul 1600 804 1487; Mul 1206 508 1206;
  Mul 1354 521 1276; Add 1206 1206 1354; Add 1303 1303 1087; Mul 1303 20 1303].
Definition casadi_f0_328 : list instruction := [
  Add 1585 1585 1536; Sub 1303 1303 1585; Sub 1667 1303 1667; Add 1649 1649 1699; Mul 1649 37 1649;
  Add 1667 1667 1649; Sub 1493 1667 1493; Add 1488 1488 1422; Mul 1488 80 1488; Add 1493 1493 1488;
  Add 1312 1312 1493; Sub 1239 1239 1634; Mul 1239 100 1239; Add 1312 1312 1239; Mul 1312 526 1312;
  Mul 1239 499 1340; Add 1312 1312 1239; Mul 1666 536 1666; Mul 1239 784 1511; Add 1666 1666 1239;
  Add 1312 1312 1666; Sub 1206 1206 1312; Mul 1202 791 1202; Mul 1668 543 1668; Add 1202 1202 1668;
  Mul 1296 539 1296; Mul 1668 538 1579; Add 1296 1296 1668; Sub 1202 1202 1296; Add 1206 1206 1202;
  Add 1248 1248 1701; Sub 1248 1248 1647; Add 1263 1263 1075; Add 1183 1183 1486; Sub 1263 1263 1183;
  Sub 1248 1248 1263; Add 1693 1693 1589; Add 1353 1353 1393; Sub 1693 1693 1353; Add 1248 1248 1693;
  Add 1248 1248 1282; Add 1016 1016 1141; Add 1519 1519 1522; Sub 1016 1016 1519; Add 1674 1674 1624;
  Add 1094 1094 1552; Add 1674 1674 1094; Add 1316 1316 1199; Add 1577 1577 1112; Sub 1316 1316 1577;
  Add 1674 1674 1316; Sub 1016 1016 1674; Add 1016 1016 1137; Add 1523 1523 1549; Add 1329 1329 1510;
  Sub 1523 1523 1329; Add 1627 1627 1189; Add 1169 1169 1363; Add 1627 1627 1169; Add 1172 1172 1266;
  Add 1025 1025 1518; Sub 1172 1172 1025; Add 1627 1627 1172; Sub 1523 1523 1627; Add 1523 1523 1545;
  Add 1351 1351 1547; Add 1517 1517 1513; Sub 1351 1351 1517; Add 1555 1555 1609; Add 1091 1091 1602;
  Add 1555 1555 1091; Add 1114 1114 1221; Add 1022 1022 1103; Sub 1114 1114 1022; Add 1555 1555 1114;
  Sub 1351 1351 1555; Add 1351 1351 1255; Add 1122 1122 1229; Add 1491 1491 1123; Sub 1122 1122 1491;
  Add 1071 1071 1394; Add 1330 1330 1391; Add 1071 1071 1330; Add 1546 1546 1252; Add 1209 1209 1598;
  Sub 1546 1546 1209; Add 1071 1071 1546; Sub 1122 1122 1071; Add 1122 1122 1062; Add 1351 1351 1122;
  Add 1523 1523 1351; Add 1016 1016 1523; Add 1248 1248 1016; Mul 1248 216 1248; Mul 1062 507 1611;
  Sub 1248 1248 1062; Add 1157 1157 1459; Sub 1456 1456 1243; Sub 1157 1157 1456; Sub 1529 1529 1365;
  Add 1157 1157 1529; Add 1411 1411 1132; Sub 1583 1583 1661; Sub 1411 1411 1583; Sub 1179 1179 1460;
  Add 1411 1411 1179; Add 1618 1618 1375; Sub 1238 1238 1320; Sub 1618 1618 1238; Sub 1236 1236 1287;
  Add 1618 1618 1236; Add 1222 1222 1681; Sub 1177 1177 1435; Sub 1222 1222 1177; Sub 1235 1235 1018;
  Add 1222 1222 1235; Add 1258 1258 1413; Sub 1616 1616 1364; Sub 1258 1258 1616; Sub 1694 1694 1302;
  Add 1258 1258 1694; Add 1222 1222 1258; Add 1618 1618 1222; Add 1411 1411 1618; Add 1157 1157 1411;
  Mul 1157 215 1157; Mul 1694 226 1487; Add 1157 1157 1694; Sub 1248 1248 1157; Sub 1168 1168 1359;
  Sub 1089 1089 1115; Sub 1382 1382 1308; Sub 1640 1640 1580; Sub 1406 1406 1675; Add 1640 1640 1406;
  Add 1382 1382 1640; Add 1089 1089 1382; Add 1168 1168 1089; Mul 1675 540 1168; Mul 1580 805 1539;
  Sub 1675 1675 1580; Add 1187 1187 1653; Sub 1430 1430 1187; Sub 1187 1430 1658; Add 1512 1512 1650;
  Add 1228 1228 1194; Add 1454 1454 1228; Sub 1512 1512 1454; Add 1454 1512 1101].
Definition casadi_f0_329 : list instruction := [
  Add 1440 1440 1247; Add 1400 1400 1278; Add 1499 1499 1400; Sub 1440 1440 1499; Add 1499 1440 1105;
  Add 1034 1034 1332; Add 1224 1224 1525; Add 1551 1551 1224; Sub 1034 1034 1551; Add 1551 1034 1566;
  Add 1384 1384 1444; Add 1367 1367 1356; Add 1109 1109 1367; Sub 1384 1384 1109; Add 1109 1384 1254;
  Add 1551 1551 1109; Add 1499 1499 1551; Add 1454 1454 1499; Add 1187 1187 1454; Mul 1187 544 1187;
  Mul 1367 693 1055; Add 1187 1187 1367; Add 1675 1675 1187; Sub 1248 1248 1675; Add 1206 1206 1248;
  Mul 1206 215 1206; Add 1600 1600 1206; Sub 1622 1622 1600; Sub 1113 1113 1658; Add 1542 1542 1101;
  Add 1651 1651 1105; Add 1409 1409 1566; Add 1231 1231 1254; Add 1409 1409 1231; Add 1651 1651 1409;
  Add 1542 1542 1651; Add 1113 1113 1542; Mul 1113 216 1113; Mul 1600 305 1611; Sub 1113 1113 1600;
  Mul 1168 215 1168; Mul 1600 805 1487; Add 1168 1168 1600; Sub 1113 1113 1168; Add 1079 1079 1113;
  Mul 1079 540 1079; Mul 1113 307 1539; Sub 1079 1079 1113; Mul 1113 360 1055; Mul 1337 216 1337;
  Mul 1168 806 1611; Sub 1337 1337 1168; Add 1430 1430 1658; Sub 1512 1512 1101; Sub 1440 1440 1105;
  Sub 1034 1034 1566; Sub 1384 1384 1254; Add 1034 1034 1384; Add 1440 1440 1034; Add 1512 1512 1440;
  Add 1430 1430 1512; Mul 1430 215 1430; Mul 1254 700 1487; Add 1430 1430 1254; Sub 1337 1337 1430;
  Add 1579 1579 1337; Mul 1579 544 1579; Add 1113 1113 1579; Add 1079 1079 1113; Sub 1622 1622 1079;
  Mul 1622 1 1622; Mul 1079 469 1374; Add 1622 1622 1079; Add 1117 1117 1622; Mul 1622 602 1601;
  Mul 1079 783 1163; Add 1622 1622 1079; Mul 1079 670 1663; Mul 1113 488 1431; Add 1079 1079 1113;
  Add 1622 1622 1079; Mul 1079 671 1496; Mul 1113 532 1283; Add 1079 1079 1113; Sub 1622 1622 1079;
  Mul 1079 679 1203; Mul 1113 523 1129; Add 1079 1079 1113; Mul 1113 796 1528; Mul 1564 680 1564;
  Mul 1579 255 1573; Add 1564 1564 1579; Mul 1150 674 1150; Mul 1579 278 1362; Sub 1150 1150 1579;
  Sub 1564 1564 1150; Mul 1082 216 1082; Mul 1150 294 1611; Sub 1082 1082 1150; Mul 1672 215 1672;
  Mul 1150 299 1487; Add 1672 1672 1150; Add 1082 1082 1672; Sub 1564 1564 1082; Mul 1082 670 1528;
  Mul 1672 502 1431; Add 1082 1082 1672; Mul 1672 602 1543; Mul 1150 505 1163; Add 1672 1672 1150;
  Sub 1082 1082 1672; Sub 1082 1564 1082; Mul 1082 672 1082; Mul 1672 502 1082; Add 1113 1113 1672;
  Sub 1079 1079 1113; Add 1622 1622 1079; Mul 1079 674 1036; Mul 1113 794 1362; Sub 1079 1079 1113;
  Mul 1113 680 1659; Mul 1672 689 1573; Add 1150 1113 1672; Add 1479 1479 1142; Add 1641 1641 1631;
  Add 1590 1590 1641; Sub 1479 1479 1590; Add 1590 1479 1346; Add 1241 1241 1133; Add 1506 1506 1686;
  Add 1563 1563 1506; Sub 1241 1241 1563; Add 1563 1241 1489; Add 1372 1372 1660; Add 1051 1051 1419;
  Add 1315 1315 1051; Sub 1372 1372 1315; Add 1315 1372 1463; Add 1284 1284 1151; Add 1535 1535 1643;
  Add 1450 1450 1535; Sub 1284 1284 1450; Add 1450 1284 1433; Add 1315 1315 1450; Add 1563 1563 1315;
  Add 1590 1590 1563; Mul 1590 676 1590; Mul 1535 410 1474; Add 1590 1590 1535].
Definition casadi_f0_330 : list instruction := [
  Sub 1150 1150 1590; Add 1079 1079 1150; Mul 1150 215 1216; Mul 1590 461 1487; Add 1150 1150 1590;
  Mul 1370 216 1370; Mul 1590 277 1611; Sub 1370 1370 1590; Sub 1150 1150 1370; Add 1079 1079 1150;
  Add 1622 1622 1079; Mul 1622 216 1622; Mul 1079 707 1611; Sub 1622 1622 1079; Mul 1079 793 1487;
  Mul 1150 602 1493; Mul 1590 491 1163; Add 1150 1150 1590; Mul 1590 670 1601; Mul 1535 783 1431;
  Add 1590 1590 1535; Add 1150 1150 1590; Mul 1590 671 1436; Mul 1535 517 1283; Add 1590 1590 1535;
  Sub 1150 1150 1590; Mul 1590 796 1543; Mul 1535 505 1082; Add 1590 1590 1535; Mul 1535 675 1203;
  Mul 1643 523 1125; Add 1535 1535 1643; Sub 1590 1590 1535; Add 1150 1150 1590; Mul 1590 674 1089;
  Mul 1535 682 1362; Sub 1590 1590 1535; Mul 1535 680 1454; Mul 1643 808 1573; Add 1535 1535 1643;
  Add 1335 1335 1341; Sub 1060 1060 1335; Add 1017 1017 1261; Add 1060 1060 1017; Sub 1017 1060 1477;
  Add 1554 1554 1223; Sub 1383 1383 1554; Add 1654 1654 1469; Add 1383 1383 1654; Sub 1654 1383 1181;
  Add 1170 1170 1633; Sub 1291 1291 1170; Add 1327 1327 1358; Add 1291 1291 1327; Sub 1327 1291 1259;
  Add 1195 1195 1297; Sub 1475 1475 1195; Add 1515 1515 1588; Add 1475 1475 1515; Sub 1515 1475 1350;
  Add 1327 1327 1515; Add 1654 1654 1327; Add 1017 1017 1654; Mul 1017 676 1017; Mul 1588 301 1474;
  Add 1017 1017 1588; Sub 1535 1535 1017; Add 1535 1590 1535; Mul 1411 215 1411; Mul 1017 303 1487;
  Add 1588 1411 1017; Mul 1195 216 1016; Mul 1297 468 1611; Sub 1195 1195 1297; Sub 1588 1588 1195;
  Add 1535 1535 1588; Add 1150 1150 1535; Mul 1150 215 1150; Add 1079 1079 1150; Sub 1150 1622 1079;
  Mul 1089 215 1089; Mul 1535 682 1487; Add 1588 1089 1535; Mul 1195 216 1542; Mul 1297 792 1611;
  Sub 1195 1195 1297; Sub 1588 1588 1195; Add 1129 1129 1588; Mul 1588 540 1129; Mul 1195 233 1539;
  Sub 1588 1588 1195; Mul 1195 789 1055; Mul 1297 215 1512; Mul 1358 686 1487; Add 1297 1297 1358;
  Mul 1659 216 1659; Mul 1358 689 1611; Sub 1659 1659 1358; Sub 1297 1297 1659; Add 1125 1125 1297;
  Mul 1297 544 1125; Add 1195 1195 1297; Add 1588 1588 1195; Sub 1150 1150 1588; Mul 1150 2 1150;
  Mul 1588 285 1646; Add 1150 1150 1588; Add 1117 1117 1150; Mul 1150 677 1084; Mul 1588 530 1617;
  Add 1150 1150 1588; Mul 1588 706 1196; Mul 1195 782 1688; Add 1588 1588 1195; Mul 1195 712 1605;
  Mul 1297 481 1097; Add 1195 1195 1297; Add 1588 1588 1195; Sub 1150 1150 1588; Mul 1588 719 1154;
  Mul 1195 519 1691; Add 1588 1588 1195; Mul 1195 709 1696; Mul 1121 216 1121; Mul 1297 348 1611;
  Sub 1121 1121 1297; Mul 1134 215 1134; Mul 1297 353 1487; Add 1134 1134 1297; Add 1121 1121 1134;
  Mul 1360 714 1360; Mul 1134 332 1484; Add 1360 1360 1134; Mul 1032 718 1032; Mul 1134 309 1208;
  Add 1032 1032 1134; Sub 1360 1360 1032; Add 1121 1121 1360; Mul 1360 706 1425; Mul 1032 497 1688;
  Add 1360 1360 1032; Mul 1032 712 1696; Mul 1134 494 1097; Add 1032 1032 1134; Sub 1360 1360 1032;
  Sub 1360 1121 1360; Mul 1360 156 1360; Mul 1032 494 1360; Add 1195 1195 1032].
Definition casadi_f0_331 : list instruction := [
  Sub 1588 1588 1195; Add 1150 1150 1588; Mul 1588 716 1563; Mul 1195 403 1289; Add 1588 1588 1195;
  Mul 1195 718 1271; Mul 1032 696 1208; Add 1134 1195 1032; Sub 1588 1588 1134; Mul 1134 714 1309;
  Mul 1297 797 1484; Add 1134 1134 1297; Sub 1588 1588 1134; Mul 1635 216 1635; Mul 1134 331 1611;
  Sub 1635 1635 1134; Mul 1134 215 1118; Mul 1297 414 1487; Add 1134 1134 1297; Sub 1134 1635 1134;
  Add 1588 1588 1134; Add 1150 1150 1588; Mul 1150 216 1150; Mul 1588 790 1611; Sub 1150 1150 1588;
  Mul 1588 704 1487; Mul 1134 677 1298; Mul 1297 513 1617; Add 1134 1134 1297; Mul 1297 706 1667;
  Mul 1358 483 1688; Add 1297 1297 1358; Mul 1358 712 1196; Mul 1170 782 1097; Add 1358 1358 1170;
  Add 1297 1297 1358; Sub 1134 1134 1297; Mul 1297 709 1425; Mul 1358 497 1360; Add 1297 1297 1358;
  Mul 1358 711 1154; Mul 1170 519 1325; Add 1358 1358 1170; Sub 1297 1297 1358; Add 1134 1134 1297;
  Mul 1297 716 1654; Mul 1358 293 1289; Add 1297 1297 1358; Mul 1358 718 1499; Mul 1170 415 1208;
  Add 1358 1358 1170; Sub 1297 1297 1358; Mul 1358 714 1382; Mul 1170 685 1484; Add 1633 1358 1170;
  Sub 1297 1297 1633; Mul 1633 216 1523; Mul 1469 416 1611; Sub 1633 1633 1469; Mul 1618 215 1618;
  Mul 1469 357 1487; Add 1554 1618 1469; Sub 1633 1633 1554; Add 1297 1297 1633; Add 1134 1134 1297;
  Mul 1134 215 1134; Add 1588 1588 1134; Sub 1134 1150 1588; Mul 1297 216 1651; Mul 1633 795 1611;
  Sub 1297 1297 1633; Mul 1382 215 1382; Mul 1633 685 1487; Add 1554 1382 1633; Sub 1297 1297 1554;
  Add 1691 1691 1297; Mul 1297 540 1691; Mul 1554 697 1539; Sub 1297 1297 1554; Mul 1554 695 1055;
  Mul 1271 216 1271; Mul 1223 696 1611; Sub 1271 1271 1223; Mul 1223 215 1440; Mul 1261 448 1487;
  Add 1223 1223 1261; Sub 1223 1271 1223; Add 1325 1325 1223; Mul 1223 544 1325; Add 1554 1554 1223;
  Add 1297 1297 1554; Sub 1297 1134 1297; Mul 1297 3 1297; Mul 1554 691 1439; Add 1297 1297 1554;
  Add 1117 1117 1297; Mul 1297 715 1424; Mul 1554 606 1339; Add 1297 1297 1554; Mul 1554 721 1457;
  Mul 1223 786 1427; Add 1554 1554 1223; Add 1297 1297 1554; Mul 1554 722 1274; Mul 1223 528 1652;
  Add 1554 1554 1223; Add 1297 1297 1554; Mul 1554 730 1581; Mul 1223 515 1182; Add 1554 1554 1223;
  Mul 1223 683 1492; Mul 1561 310 1561; Mul 1261 408 1452; Add 1561 1561 1261; Mul 1369 327 1369;
  Mul 1261 404 1147; Add 1369 1369 1261; Sub 1561 1561 1369; Mul 1388 731 1388; Mul 1369 363 1250;
  Add 1388 1388 1369; Mul 1402 725 1402; Mul 1369 387 1576; Add 1402 1402 1369; Sub 1388 1388 1402;
  Add 1561 1561 1388; Mul 1388 721 1492; Mul 1402 486 1427; Add 1388 1388 1402; Mul 1402 715 1242;
  Mul 1369 489 1339; Add 1402 1402 1369; Sub 1388 1388 1402; Sub 1388 1561 1388; Mul 1388 723 1388;
  Mul 1402 486 1388; Add 1223 1223 1402; Sub 1554 1554 1223; Add 1297 1297 1554; Mul 1554 725 1567;
  Mul 1223 800 1576; Add 1554 1554 1223; Mul 1223 731 1131; Mul 1402 703 1250; Add 1369 1223 1402;
  Mul 1261 727 1315; Mul 1335 306 1417; Add 1261 1261 1335; Add 1369 1369 1261].
Definition casadi_f0_332 : list instruction := [
  Add 1554 1554 1369; Mul 1369 310 1466; Mul 1261 361 1452; Add 1369 1369 1261; Mul 1593 327 1593;
  Mul 1261 386 1147; Add 1335 1593 1261; Mul 1341 318 1642; Mul 1643 59 1526; Add 1341 1341 1643;
  Add 1335 1335 1341; Add 1369 1369 1335; Sub 1554 1554 1369; Add 1297 1297 1554; Mul 1554 216 1297;
  Mul 1369 690 1611; Sub 1554 1554 1369; Mul 1369 807 1487; Mul 1335 715 1303; Mul 1341 705 1339;
  Add 1335 1335 1341; Mul 1341 721 1424; Mul 1643 606 1427; Add 1341 1341 1643; Add 1335 1335 1341;
  Mul 1341 722 1586; Mul 1643 510 1652; Add 1341 1341 1643; Add 1335 1335 1341; Mul 1341 683 1242;
  Mul 1643 489 1388; Add 1341 1341 1643; Mul 1643 726 1581; Mul 1151 515 1130; Add 1643 1643 1151;
  Sub 1341 1341 1643; Add 1335 1335 1341; Mul 1341 725 1640; Mul 1643 692 1576; Add 1151 1341 1643;
  Mul 1051 731 1551; Mul 1419 465 1250; Add 1051 1051 1419; Mul 1419 727 1327; Mul 1660 785 1417;
  Add 1419 1419 1660; Add 1051 1051 1419; Add 1151 1151 1051; Mul 1222 310 1222; Mul 1051 412 1452;
  Add 1419 1222 1051; Mul 1660 327 1351; Mul 1506 407 1147; Add 1660 1660 1506; Mul 1506 318 1324;
  Mul 1686 580 1526; Add 1506 1506 1686; Add 1660 1660 1506; Add 1419 1419 1660; Sub 1151 1151 1419;
  Add 1335 1335 1151; Mul 1151 215 1335; Add 1369 1369 1151; Sub 1151 1554 1369; Mul 1640 310 1640;
  Mul 1419 692 1452; Add 1660 1640 1419; Mul 1506 327 1409; Mul 1686 798 1147; Add 1506 1506 1686;
  Mul 1686 318 1604; Mul 1133 640 1526; Add 1686 1686 1133; Add 1506 1506 1686; Add 1660 1660 1506;
  Sub 1182 1182 1660; Mul 1660 540 1182; Mul 1506 811 1539; Sub 1660 1660 1506; Mul 1506 813 1055;
  Mul 1686 310 1034; Mul 1133 464 1452; Add 1686 1686 1133; Mul 1131 327 1131; Mul 1133 703 1147;
  Add 1641 1131 1133; Mul 1631 318 1697; Mul 1142 662 1526; Add 1631 1631 1142; Add 1641 1641 1631;
  Add 1686 1686 1641; Sub 1130 1130 1686; Mul 1686 544 1130; Add 1506 1506 1686; Add 1660 1660 1506;
  Sub 1660 1151 1660; Mul 1660 4 1660; Mul 1506 812 1344; Add 1660 1660 1506; Add 1117 1117 1660;
  Mul 1660 728 1398; Mul 1506 609 1603; Add 1660 1660 1506; Mul 1506 733 1571; Mul 1686 604 1461;
  Add 1506 1506 1686; Add 1660 1660 1506; Mul 1506 734 1677; Mul 1686 426 1285; Add 1506 1506 1686;
  Add 1660 1660 1506; Mul 1506 739 1230; Mul 1686 438 1412; Add 1506 1506 1686; Mul 1686 816 1093;
  Mul 1026 358 1026; Mul 1641 462 1594; Add 1026 1026 1641; Mul 1645 372 1645; Mul 1641 458 1498;
  Add 1645 1645 1641; Sub 1026 1026 1645; Mul 1401 741 1401; Mul 1645 417 1670; Add 1401 1401 1645;
  Mul 1019 736 1019; Mul 1645 441 1514; Add 1019 1019 1645; Sub 1401 1401 1019; Add 1026 1026 1401;
  Mul 1401 733 1093; Mul 1019 445 1461; Add 1401 1401 1019; Mul 1019 728 1268; Mul 1645 434 1603;
  Add 1019 1019 1645; Sub 1401 1401 1019; Sub 1026 1026 1401; Mul 1026 430 1026; Mul 1401 445 1026;
  Add 1686 1686 1401; Sub 1506 1506 1686; Add 1660 1660 1506; Mul 1506 736 1175; Mul 1686 803 1514;
  Add 1506 1506 1686; Mul 1686 741 1210; Mul 1401 710 1670; Add 1019 1686 1401].
Definition casadi_f0_333 : list instruction := [
  Mul 1645 738 1450; Mul 1641 356 1343; Add 1645 1645 1641; Add 1019 1019 1645; Add 1506 1506 1019;
  Mul 1019 358 1219; Mul 1645 352 1594; Add 1019 1019 1645; Mul 1143 372 1143; Mul 1645 440 1498;
  Add 1641 1143 1645; Mul 1631 369 1368; Mul 1142 36 1415; Add 1631 1631 1142; Add 1641 1641 1631;
  Add 1019 1019 1641; Sub 1506 1506 1019; Add 1660 1660 1506; Mul 1506 216 1660; Mul 1019 814 1611;
  Sub 1506 1506 1019; Mul 1019 817 1487; Mul 1603 13 1603; Mul 1641 728 1536; Sub 1603 1603 1641;
  Mul 1641 733 1398; Mul 1461 609 1461; Add 1641 1641 1461; Add 1603 1603 1641; Mul 1641 734 1096;
  Mul 1285 443 1285; Add 1641 1641 1285; Add 1603 1603 1641; Mul 1641 816 1268; Mul 1285 434 1026;
  Add 1641 1641 1285; Mul 1285 735 1230; Mul 1461 438 1423; Add 1285 1285 1461; Sub 1641 1641 1285;
  Add 1603 1603 1641; Mul 1641 736 1406; Mul 1285 699 1514; Add 1461 1641 1285; Mul 1631 741 1109;
  Mul 1142 394 1670; Add 1631 1631 1142; Mul 1142 738 1515; Mul 1579 245 1343; Add 1142 1142 1579;
  Add 1631 1631 1142; Add 1461 1461 1631; Mul 1258 358 1258; Mul 1631 466 1594; Add 1142 1258 1631;
  Mul 1579 372 1122; Mul 1337 359 1498; Add 1579 1579 1337; Mul 1337 369 1584; Mul 1430 593 1415;
  Add 1337 1337 1430; Add 1579 1579 1337; Add 1142 1142 1579; Sub 1461 1461 1142; Add 1603 1603 1461;
  Mul 1461 215 1603; Add 1019 1019 1461; Sub 1461 1506 1019; Mul 1406 358 1406; Mul 1142 699 1594;
  Add 1579 1406 1142; Mul 1337 372 1231; Mul 1430 801 1498; Add 1337 1337 1430; Mul 1430 369 1110;
  Mul 1254 645 1415; Add 1430 1430 1254; Add 1337 1337 1430; Add 1579 1579 1337; Sub 1412 1412 1579;
  Mul 1579 540 1412; Mul 1337 820 1539; Sub 1579 1579 1337; Mul 1337 822 1055; Mul 1430 358 1384;
  Mul 1254 457 1594; Add 1430 1430 1254; Mul 1210 372 1210; Mul 1254 710 1498; Add 1566 1210 1254;
  Mul 1105 369 1318; Mul 1101 666 1415; Add 1105 1105 1101; Add 1566 1566 1105; Add 1430 1430 1566;
  Sub 1423 1423 1430; Mul 1430 544 1423; Add 1337 1337 1430; Add 1579 1579 1337; Sub 1579 1461 1579;
  Mul 1579 5 1579; Mul 1337 821 1148; Add 1579 1579 1337; Add 1117 1117 1579; Mul 1377 85 1377;
  Mul 1572 79 1572; Sub 1377 1377 1572; Mul 1568 54 1568; Mul 1434 61 1434; Sub 1568 1568 1434;
  Mul 1021 19 1021; Mul 1434 763 1521; Sub 1021 1021 1434; Mul 1434 751 1392; Mul 1099 35 1099;
  Add 1434 1434 1099; Sub 1021 1021 1434; Mul 1047 55 1047; Mul 1639 62 1639; Sub 1047 1047 1639;
  Add 1021 1021 1047; Add 1568 1568 1021; Mul 1453 86 1453; Mul 1621 91 1621; Sub 1453 1453 1621;
  Add 1453 1568 1453; Add 1377 1377 1453; Mul 1657 102 1657; Sub 1657 1377 1657; Mul 1607 101 1607;
  Add 1657 1657 1607; Add 1117 1117 1657; Mul 1657 777 1117; Sub 1135 1135 1657; Add 1676 1676 1135;
  Div 1135 1685 92; Mul 1657 1023 1037; Sub 1135 1135 1657; Mul 1657 767 1135; Mul 1323 674 1323;
  Mul 1607 630 1362; Sub 1323 1323 1607; Mul 1607 654 1573; Mul 1548 680 1548; Add 1607 1607 1548;
  Add 1532 1532 1081; Sub 1607 1607 1532; Add 1323 1323 1607; Mul 1607 615 1487].
Definition casadi_f0_334 : list instruction := [
  Mul 1100 215 1100; Add 1607 1607 1100; Mul 1556 216 1556; Mul 1100 7 1611; Sub 1556 1556 1100;
  Sub 1607 1607 1556; Add 1323 1323 1607; Mul 1323 0 1323; Mul 1607 771 1482; Add 1323 1323 1607;
  Mul 1607 748 1042; Mul 1556 216 1203; Mul 1100 523 1611; Sub 1556 1556 1100; Add 1556 1362 1556;
  Mul 1556 672 1556; Mul 1100 545 1556; Sub 1607 1607 1100; Mul 1100 216 1528; Mul 1532 502 1611;
  Sub 1100 1100 1532; Mul 1532 215 1543; Mul 1081 505 1487; Add 1532 1532 1081; Add 1100 1100 1532;
  Sub 1100 1100 1474; Mul 1100 672 1100; Mul 1532 504 1100; Mul 1081 750 1338; Add 1532 1532 1081;
  Mul 1081 215 1203; Mul 1548 523 1487; Add 1081 1081 1548; Sub 1081 1573 1081; Mul 1081 672 1081;
  Mul 1548 541 1081; Mul 1453 627 1310; Add 1548 1548 1453; Sub 1532 1532 1548; Add 1607 1607 1532;
  Mul 1436 215 1436; Mul 1532 517 1487; Add 1436 1436 1532; Mul 1496 216 1496; Mul 1532 532 1611;
  Sub 1496 1496 1532; Sub 1436 1436 1496; Mul 1496 627 1528; Mul 1532 502 1081; Add 1496 1496 1532;
  Mul 1532 748 1543; Mul 1548 505 1556; Sub 1532 1532 1548; Sub 1496 1496 1532; Add 1436 1436 1496;
  Mul 1436 508 1436; Mul 1496 744 1276; Add 1436 1436 1496; Mul 1496 215 1601; Mul 1532 783 1487;
  Add 1496 1496 1532; Mul 1663 216 1663; Mul 1532 488 1611; Sub 1663 1663 1532; Sub 1496 1496 1663;
  Mul 1663 748 1203; Mul 1556 523 1556; Sub 1663 1663 1556; Mul 1528 750 1528; Mul 1556 502 1100;
  Add 1528 1528 1556; Sub 1663 1663 1528; Add 1496 1496 1663; Mul 1496 536 1496; Mul 1663 824 1511;
  Add 1496 1496 1663; Sub 1436 1436 1496; Mul 1493 215 1493; Mul 1496 491 1487; Add 1493 1493 1496;
  Mul 1601 216 1601; Mul 1496 783 1611; Sub 1601 1601 1496; Sub 1493 1493 1601; Mul 1543 750 1543;
  Mul 1100 505 1100; Add 1543 1543 1100; Mul 1203 627 1203; Mul 1081 523 1081; Add 1203 1203 1081;
  Sub 1543 1543 1203; Add 1493 1493 1543; Mul 1493 526 1493; Mul 1543 825 1340; Add 1493 1493 1543;
  Sub 1436 1436 1493; Add 1607 1607 1436; Mul 1542 674 1542; Mul 1436 792 1362; Sub 1542 1542 1436;
  Add 1672 1672 1113; Mul 1113 298 1474; Sub 1479 1479 1346; Sub 1241 1241 1489; Sub 1372 1372 1463;
  Sub 1284 1284 1433; Add 1372 1372 1284; Add 1241 1241 1372; Add 1479 1479 1241; Mul 1433 676 1479;
  Add 1113 1113 1433; Sub 1672 1672 1113; Add 1542 1542 1672; Mul 1672 468 1487; Mul 1016 215 1016;
  Add 1672 1672 1016; Sub 1672 1672 1370; Add 1542 1542 1672; Mul 1542 216 1542; Mul 1672 823 1611;
  Sub 1542 1542 1672; Mul 1672 686 1573; Mul 1512 680 1512; Add 1672 1672 1512; Mul 1512 232 1474;
  Add 1060 1060 1477; Add 1383 1383 1181; Add 1291 1291 1259; Add 1475 1475 1350; Add 1291 1291 1475;
  Add 1383 1383 1291; Add 1060 1060 1383; Mul 1350 676 1060; Add 1512 1512 1350; Sub 1672 1672 1512;
  Add 1590 1590 1672; Add 1017 1017 1411; Mul 1216 216 1216; Mul 1411 461 1611; Sub 1216 1216 1411;
  Sub 1017 1017 1216; Add 1590 1590 1017; Mul 1590 215 1590; Mul 1017 668 1487; Add 1590 1590 1017;
  Sub 1542 1542 1590; Add 1535 1535 1089; Mul 1036 216 1036; Mul 1089 794 1611].
Definition casadi_f0_335 : list instruction := [
  Sub 1036 1036 1089; Sub 1535 1535 1036; Mul 1535 540 1535; Mul 1036 664 1539; Sub 1535 1535 1036;
  Mul 1036 808 1487; Mul 1454 215 1454; Add 1036 1036 1454; Sub 1036 1036 1659; Mul 1036 544 1036;
  Mul 1659 642 1055; Add 1036 1036 1659; Add 1535 1535 1036; Sub 1542 1542 1535; Add 1607 1607 1542;
  Mul 1607 1 1607; Mul 1542 760 1374; Add 1607 1607 1542; Add 1323 1323 1607; Mul 1129 674 1129;
  Mul 1607 233 1362; Sub 1129 1129 1607; Mul 1607 789 1573; Mul 1125 680 1125; Add 1607 1607 1125;
  Mul 1125 637 1474; Mul 1060 215 1060; Mul 1542 232 1487; Add 1060 1060 1542; Mul 1479 216 1479;
  Mul 1542 298 1611; Sub 1479 1479 1542; Sub 1060 1060 1479; Add 1082 1082 1060; Mul 1082 676 1082;
  Add 1125 1125 1082; Sub 1607 1607 1125; Add 1129 1129 1607; Sub 1079 1079 1622; Add 1129 1129 1079;
  Mul 1129 2 1129; Mul 1079 826 1646; Add 1129 1129 1079; Add 1323 1323 1129; Mul 1129 674 1691;
  Mul 1079 697 1362; Sub 1129 1129 1079; Mul 1079 695 1573; Mul 1622 680 1325; Add 1079 1079 1622;
  Mul 1622 647 1474; Mul 1607 216 1241; Mul 1125 411 1611; Sub 1607 1607 1125; Mul 1125 215 1383;
  Mul 1082 302 1487; Add 1125 1125 1082; Sub 1607 1607 1125; Add 1360 1360 1607; Mul 1607 676 1360;
  Add 1622 1622 1607; Sub 1079 1079 1622; Add 1129 1129 1079; Sub 1588 1588 1150; Add 1129 1129 1588;
  Mul 1129 3 1129; Mul 1588 347 1439; Add 1129 1129 1588; Add 1323 1323 1129; Mul 1129 674 1182;
  Mul 1588 811 1362; Sub 1129 1129 1588; Mul 1588 813 1573; Mul 1150 680 1130; Add 1588 1588 1150;
  Mul 1150 802 1474; Mul 1079 310 1291; Mul 1622 252 1452; Add 1079 1079 1622; Mul 1622 327 1372;
  Mul 1607 339 1147; Add 1622 1622 1607; Mul 1245 318 1245; Mul 1607 701 1526; Add 1125 1245 1607;
  Add 1622 1622 1125; Add 1079 1079 1622; Sub 1388 1388 1079; Mul 1079 676 1388; Add 1150 1150 1079;
  Sub 1588 1588 1150; Add 1129 1129 1588; Sub 1369 1369 1554; Add 1129 1129 1369; Mul 1129 4 1129;
  Mul 1369 698 1344; Add 1129 1129 1369; Add 1323 1323 1129; Mul 1129 674 1412; Mul 1369 820 1362;
  Sub 1129 1129 1369; Mul 1369 822 1573; Mul 1554 680 1423; Add 1369 1369 1554; Mul 1554 788 1474;
  Mul 1588 358 1475; Mul 1150 234 1594; Add 1588 1588 1150; Mul 1150 372 1284; Mul 1079 355 1498;
  Add 1150 1150 1079; Mul 1301 369 1301; Mul 1079 708 1415; Add 1622 1301 1079; Add 1150 1150 1622;
  Add 1588 1588 1150; Sub 1026 1026 1588; Mul 1588 676 1026; Add 1554 1554 1588; Sub 1369 1369 1554;
  Add 1129 1129 1369; Sub 1019 1019 1506; Add 1129 1129 1019; Mul 1129 5 1129; Mul 1019 809 1148;
  Add 1129 1129 1019; Add 1323 1323 1129; Sub 1377 1377 1323; Mul 1323 778 1377; Add 1657 1657 1323;
  Sub 1676 1676 1657; Div 1657 1028 92; Mul 1323 1516 1037; Sub 1657 1657 1323; Mul 1323 775 1657;
  Add 1165 1165 1541; Mul 1541 658 1208; Mul 1503 718 1503; Add 1541 1541 1503; Sub 1165 1165 1541;
  Mul 1541 635 1484; Mul 1305 714 1305; Add 1541 1541 1305; Sub 1165 1165 1541; Mul 1485 216 1485;
  Mul 1541 90 1611; Sub 1485 1485 1541; Mul 1541 566 1487; Mul 1557 215 1557].
Definition casadi_f0_336 : list instruction := [
  Add 1541 1541 1557; Sub 1485 1485 1541; Add 1165 1165 1485; Mul 1165 0 1165; Mul 1485 818 1482;
  Add 1165 1165 1485; Mul 1485 216 1154; Mul 1541 519 1611; Sub 1485 1485 1541; Sub 1485 1485 1484;
  Mul 1485 156 1485; Mul 1541 545 1485; Mul 1557 684 1042; Add 1541 1541 1557; Mul 1557 216 1696;
  Mul 1305 494 1611; Sub 1557 1557 1305; Mul 1305 215 1425; Mul 1503 497 1487; Add 1305 1305 1503;
  Add 1557 1557 1305; Sub 1557 1289 1557; Mul 1557 156 1557; Mul 1305 504 1557; Mul 1503 660 1338;
  Add 1305 1305 1503; Mul 1503 215 1154; Mul 1129 519 1487; Add 1503 1503 1129; Sub 1503 1503 1208;
  Mul 1503 156 1503; Mul 1129 541 1503; Mul 1019 827 1310; Add 1129 1129 1019; Sub 1305 1305 1129;
  Add 1541 1541 1305; Mul 1084 216 1084; Mul 1305 530 1611; Sub 1084 1084 1305; Mul 1298 215 1298;
  Mul 1305 513 1487; Add 1298 1298 1305; Sub 1084 1084 1298; Mul 1298 827 1696; Mul 1305 494 1503;
  Add 1298 1298 1305; Mul 1305 684 1425; Mul 1129 497 1485; Add 1305 1305 1129; Sub 1298 1298 1305;
  Add 1084 1084 1298; Mul 1298 508 1084; Mul 1305 656 1276; Add 1298 1298 1305; Mul 1605 216 1605;
  Mul 1305 481 1611; Sub 1605 1605 1305; Mul 1305 215 1196; Mul 1129 782 1487; Add 1305 1305 1129;
  Sub 1605 1605 1305; Mul 1305 684 1154; Mul 1129 519 1485; Add 1305 1305 1129; Mul 1696 660 1696;
  Mul 1129 494 1557; Add 1696 1696 1129; Sub 1305 1305 1696; Add 1605 1605 1305; Mul 1305 536 1605;
  Mul 1696 829 1511; Add 1305 1305 1696; Sub 1298 1298 1305; Mul 1196 216 1196; Mul 1305 782 1611;
  Sub 1196 1196 1305; Mul 1667 215 1667; Mul 1305 483 1487; Add 1667 1667 1305; Sub 1196 1196 1667;
  Mul 1425 660 1425; Mul 1667 497 1557; Add 1425 1425 1667; Mul 1154 827 1154; Mul 1667 519 1503;
  Add 1154 1154 1667; Sub 1425 1425 1154; Add 1196 1196 1425; Mul 1425 526 1196; Mul 1154 830 1340;
  Add 1425 1425 1154; Sub 1298 1298 1425; Add 1541 1541 1298; Mul 1298 411 1289; Mul 1241 716 1241;
  Add 1298 1298 1241; Add 1032 1032 1195; Sub 1298 1298 1032; Mul 1032 795 1484; Mul 1651 714 1651;
  Add 1032 1032 1651; Sub 1298 1298 1032; Mul 1032 416 1487; Mul 1523 215 1523; Add 1032 1032 1523;
  Sub 1635 1635 1032; Add 1298 1298 1635; Mul 1298 216 1298; Mul 1635 828 1611; Sub 1298 1298 1635;
  Mul 1635 302 1289; Mul 1383 716 1383; Add 1635 1635 1383; Mul 1383 448 1208; Mul 1440 718 1440;
  Add 1383 1383 1440; Sub 1635 1635 1383; Add 1170 1170 1358; Sub 1635 1635 1170; Mul 1118 216 1118;
  Mul 1170 414 1611; Sub 1118 1118 1170; Add 1469 1469 1618; Sub 1118 1118 1469; Add 1635 1635 1118;
  Mul 1635 215 1635; Mul 1118 832 1487; Add 1635 1635 1118; Sub 1118 1298 1635; Mul 1309 216 1309;
  Mul 1469 797 1611; Sub 1309 1309 1469; Add 1633 1633 1382; Sub 1309 1309 1633; Mul 1633 540 1309;
  Mul 1382 835 1539; Sub 1633 1633 1382; Mul 1382 415 1487; Mul 1499 215 1499; Add 1382 1382 1499;
  Sub 1271 1271 1382; Mul 1382 544 1271; Mul 1499 837 1055; Add 1382 1382 1499; Add 1633 1633 1382;
  Sub 1118 1118 1633; Add 1541 1541 1118; Mul 1541 1 1541; Mul 1118 632 1374].
Definition casadi_f0_337 : list instruction := [
  Add 1541 1541 1118; Add 1165 1165 1541; Mul 1485 678 1485; Mul 1541 684 1665; Add 1485 1485 1541;
  Mul 1503 673 1503; Mul 1541 827 1092; Add 1503 1503 1541; Mul 1557 799 1557; Mul 1541 660 1564;
  Add 1557 1557 1541; Add 1503 1503 1557; Add 1485 1485 1503; Mul 1196 602 1196; Mul 1503 830 1163;
  Add 1196 1196 1503; Mul 1605 670 1605; Mul 1503 829 1431; Add 1605 1605 1503; Mul 1084 671 1084;
  Mul 1503 656 1283; Add 1084 1084 1503; Sub 1605 1605 1084; Add 1196 1196 1605; Add 1485 1485 1196;
  Mul 1309 674 1309; Mul 1196 835 1362; Sub 1309 1309 1196; Mul 1271 680 1271; Mul 1196 837 1573;
  Add 1271 1271 1196; Mul 1563 216 1563; Mul 1196 403 1611; Sub 1563 1563 1196; Mul 1196 293 1487;
  Mul 1654 215 1654; Add 1196 1196 1654; Sub 1563 1563 1196; Mul 1563 676 1563; Mul 1196 839 1474;
  Add 1563 1563 1196; Sub 1271 1271 1563; Add 1309 1309 1271; Sub 1635 1635 1298; Add 1309 1309 1635;
  Add 1485 1485 1309; Mul 1485 2 1485; Mul 1309 834 1646; Add 1485 1485 1309; Add 1165 1165 1485;
  Mul 1485 647 1289; Mul 1360 716 1360; Add 1485 1485 1360; Mul 1360 695 1208; Mul 1325 718 1325;
  Add 1360 1360 1325; Sub 1485 1485 1360; Mul 1360 697 1484; Mul 1691 714 1691; Add 1360 1360 1691;
  Sub 1485 1485 1360; Add 1485 1485 1134; Mul 1485 3 1485; Mul 1134 836 1439; Add 1485 1485 1134;
  Add 1165 1165 1485; Mul 1485 802 1289; Mul 1134 716 1388; Add 1485 1485 1134; Mul 1134 813 1208;
  Mul 1360 718 1130; Add 1134 1134 1360; Sub 1485 1485 1134; Mul 1134 811 1484; Mul 1360 714 1182;
  Add 1134 1134 1360; Sub 1485 1485 1134; Add 1485 1485 1151; Mul 1485 4 1485; Mul 1151 702 1344;
  Add 1485 1485 1151; Add 1165 1165 1485; Mul 1485 788 1289; Mul 1151 716 1026; Add 1485 1485 1151;
  Mul 1151 822 1208; Mul 1134 718 1423; Add 1151 1151 1134; Sub 1485 1485 1151; Mul 1151 820 1484;
  Mul 1134 714 1412; Add 1151 1151 1134; Sub 1485 1485 1151; Add 1485 1485 1461; Mul 1485 5 1485;
  Mul 1461 810 1148; Add 1485 1485 1461; Add 1165 1165 1485; Add 1165 1165 1568; Mul 1568 769 1165;
  Sub 1323 1323 1568; Add 1676 1676 1323; Div 1323 1020 92; Mul 1568 1637 1037; Sub 1323 1323 1568;
  Mul 1568 815 1323; Mul 1485 640 1576; Mul 1604 725 1604; Add 1485 1485 1604; Mul 1604 662 1250;
  Mul 1697 731 1697; Add 1604 1604 1697; Add 1319 1319 1387; Add 1604 1604 1319; Add 1485 1485 1604;
  Mul 1604 580 1452; Mul 1324 310 1324; Add 1604 1604 1324; Mul 1324 59 1147; Mul 1642 327 1642;
  Add 1324 1324 1642; Add 1679 1679 1104; Add 1324 1324 1679; Add 1604 1604 1324; Sub 1485 1485 1604;
  Mul 1485 0 1485; Mul 1604 819 1482; Add 1485 1485 1604; Mul 1604 327 1581; Mul 1324 515 1147;
  Add 1604 1604 1324; Mul 1324 318 1242; Mul 1679 489 1526; Add 1324 1324 1679; Sub 1604 1604 1324;
  Sub 1604 1576 1604; Mul 1604 723 1604; Mul 1324 545 1604; Mul 1679 831 1042; Add 1324 1324 1679;
  Mul 1679 310 1242; Mul 1104 489 1452; Add 1679 1679 1104; Mul 1104 327 1492; Mul 1642 486 1147;
  Add 1104 1104 1642; Sub 1679 1679 1104; Sub 1679 1417 1679; Mul 1679 723 1679].
Definition casadi_f0_338 : list instruction := [
  Mul 1104 504 1679; Mul 1642 840 1338; Add 1104 1104 1642; Mul 1642 318 1492; Mul 1319 486 1526;
  Add 1642 1642 1319; Mul 1319 310 1581; Mul 1387 515 1452; Add 1319 1319 1387; Sub 1642 1642 1319;
  Sub 1642 1250 1642; Mul 1642 723 1642; Mul 1319 541 1642; Mul 1387 842 1310; Add 1319 1319 1387;
  Sub 1104 1104 1319; Add 1324 1324 1104; Mul 1104 842 1492; Mul 1319 486 1642; Add 1104 1104 1319;
  Mul 1319 831 1242; Mul 1387 489 1604; Add 1319 1319 1387; Sub 1104 1104 1319; Mul 1319 310 1586;
  Mul 1387 510 1452; Add 1319 1319 1387; Mul 1387 327 1274; Mul 1697 528 1147; Add 1387 1387 1697;
  Add 1319 1319 1387; Mul 1682 318 1682; Mul 1387 479 1526; Add 1682 1682 1387; Add 1319 1319 1682;
  Sub 1104 1104 1319; Mul 1319 508 1104; Mul 1682 841 1276; Add 1319 1319 1682; Mul 1682 831 1581;
  Mul 1387 515 1604; Add 1682 1682 1387; Mul 1492 840 1492; Mul 1387 486 1679; Add 1492 1492 1387;
  Sub 1682 1682 1492; Mul 1492 310 1424; Mul 1387 606 1452; Add 1492 1492 1387; Mul 1457 327 1457;
  Mul 1387 786 1147; Add 1457 1457 1387; Add 1492 1492 1457; Mul 1274 318 1274; Mul 1457 528 1526;
  Add 1274 1274 1457; Add 1492 1492 1274; Sub 1682 1682 1492; Mul 1492 536 1682; Mul 1274 844 1511;
  Add 1492 1492 1274; Sub 1319 1319 1492; Mul 1242 840 1242; Mul 1492 489 1679; Add 1242 1242 1492;
  Mul 1581 842 1581; Mul 1492 515 1642; Add 1581 1581 1492; Sub 1242 1242 1581; Mul 1303 310 1303;
  Mul 1581 705 1452; Add 1303 1303 1581; Mul 1424 327 1424; Mul 1581 606 1147; Add 1424 1424 1581;
  Add 1303 1303 1424; Mul 1586 318 1586; Mul 1424 510 1526; Add 1586 1586 1424; Add 1303 1303 1586;
  Sub 1242 1242 1303; Mul 1303 526 1242; Mul 1586 845 1340; Add 1303 1303 1586; Sub 1319 1319 1303;
  Add 1324 1324 1319; Add 1419 1419 1640; Mul 1640 800 1147; Mul 1567 327 1567; Add 1640 1640 1567;
  Mul 1567 643 1526; Mul 1473 318 1473; Add 1567 1567 1473; Add 1640 1640 1567; Add 1419 1419 1640;
  Mul 1640 540 1419; Mul 1567 843 1539; Sub 1640 1640 1567; Mul 1567 465 1452; Mul 1551 310 1551;
  Add 1567 1567 1551; Add 1133 1133 1131; Mul 1131 665 1526; Mul 1156 318 1156; Add 1131 1131 1156;
  Add 1133 1133 1131; Add 1567 1567 1133; Mul 1133 544 1567; Mul 1131 847 1055; Add 1133 1133 1131;
  Add 1640 1640 1133; Mul 1133 798 1576; Mul 1409 725 1409; Add 1133 1133 1409; Add 1402 1402 1223;
  Mul 1223 339 1417; Mul 1372 727 1372; Add 1223 1223 1372; Add 1402 1402 1223; Add 1133 1133 1402;
  Mul 1402 407 1452; Mul 1351 310 1351; Add 1402 1402 1351; Add 1261 1261 1593; Mul 1593 595 1526;
  Mul 1237 318 1237; Add 1593 1593 1237; Add 1261 1261 1593; Add 1402 1402 1261; Sub 1133 1133 1402;
  Mul 1133 216 1133; Mul 1402 848 1611; Sub 1133 1133 1402; Add 1643 1643 1341; Mul 1341 464 1250;
  Mul 1034 731 1034; Add 1341 1341 1034; Mul 1034 252 1417; Mul 1291 727 1291; Add 1034 1034 1291;
  Add 1341 1341 1034; Add 1643 1643 1341; Add 1051 1051 1222; Mul 1222 361 1147; Mul 1466 327 1466;
  Add 1222 1222 1466; Mul 1466 620 1526; Mul 1497 318 1497; Add 1466 1466 1497].
Definition casadi_f0_339 : list instruction := [
  Add 1222 1222 1466; Add 1051 1051 1222; Sub 1643 1643 1051; Mul 1643 215 1643; Mul 1051 850 1487;
  Add 1643 1643 1051; Sub 1051 1133 1643; Add 1640 1640 1051; Add 1324 1324 1640; Mul 1324 1 1324;
  Mul 1640 838 1374; Add 1324 1324 1640; Add 1485 1485 1324; Mul 1324 678 1604; Mul 1640 831 1665;
  Add 1324 1324 1640; Mul 1640 673 1642; Mul 1222 842 1092; Add 1640 1640 1222; Mul 1222 799 1679;
  Mul 1466 840 1564; Add 1222 1222 1466; Add 1640 1640 1222; Add 1324 1324 1640; Mul 1640 602 1242;
  Mul 1222 845 1163; Add 1640 1640 1222; Mul 1222 670 1682; Mul 1466 844 1431; Add 1222 1222 1466;
  Mul 1466 671 1104; Mul 1497 841 1283; Add 1466 1466 1497; Sub 1222 1222 1466; Add 1640 1640 1222;
  Add 1324 1324 1640; Mul 1640 785 1452; Mul 1327 310 1327; Add 1640 1640 1327; Mul 1327 306 1147;
  Mul 1315 327 1315; Add 1327 1327 1315; Add 1607 1607 1245; Add 1327 1327 1607; Add 1640 1640 1327;
  Mul 1327 676 1640; Mul 1607 853 1474; Add 1327 1327 1607; Mul 1607 680 1567; Mul 1245 847 1573;
  Add 1607 1607 1245; Sub 1327 1327 1607; Mul 1607 674 1419; Mul 1245 843 1362; Sub 1607 1607 1245;
  Sub 1327 1327 1607; Sub 1643 1643 1133; Add 1327 1327 1643; Add 1324 1324 1327; Mul 1324 2 1324;
  Mul 1327 846 1646; Add 1324 1324 1327; Add 1485 1485 1324; Mul 1604 717 1604; Mul 1324 831 1690;
  Add 1604 1604 1324; Mul 1679 787 1679; Mul 1324 840 1121; Add 1679 1679 1324; Mul 1642 713 1642;
  Mul 1324 842 1389; Add 1642 1642 1324; Sub 1679 1679 1642; Add 1604 1604 1679; Mul 1104 677 1104;
  Mul 1679 841 1617; Add 1104 1104 1679; Mul 1682 712 1682; Mul 1679 844 1097; Add 1682 1682 1679;
  Sub 1104 1104 1682; Mul 1242 706 1242; Mul 1682 845 1688; Add 1242 1242 1682; Sub 1104 1104 1242;
  Add 1604 1604 1104; Mul 1419 714 1419; Mul 1104 843 1484; Add 1419 1419 1104; Mul 1567 718 1567;
  Mul 1104 847 1208; Add 1567 1567 1104; Mul 1640 716 1640; Mul 1104 853 1289; Add 1640 1640 1104;
  Sub 1567 1567 1640; Add 1419 1419 1567; Add 1419 1419 1051; Add 1604 1604 1419; Mul 1604 3 1604;
  Mul 1419 854 1439; Add 1604 1604 1419; Add 1485 1485 1604; Mul 1604 811 1576; Mul 1182 725 1182;
  Add 1604 1604 1182; Mul 1182 813 1250; Mul 1130 731 1130; Add 1182 1182 1130; Mul 1130 802 1417;
  Mul 1388 727 1388; Add 1130 1130 1388; Add 1182 1182 1130; Add 1604 1604 1182; Mul 1182 807 1452;
  Mul 1335 310 1335; Add 1182 1182 1335; Mul 1335 690 1147; Mul 1297 327 1297; Add 1335 1335 1297;
  Mul 1297 720 1526; Mul 1127 318 1127; Add 1297 1297 1127; Add 1335 1335 1297; Add 1182 1182 1335;
  Sub 1604 1604 1182; Mul 1604 4 1604; Mul 1182 851 1344; Add 1604 1604 1182; Add 1485 1485 1604;
  Mul 1604 820 1576; Mul 1182 725 1412; Add 1604 1604 1182; Mul 1182 822 1250; Mul 1335 731 1423;
  Add 1182 1182 1335; Mul 1335 788 1417; Mul 1297 727 1026; Add 1335 1335 1297; Add 1182 1182 1335;
  Add 1604 1604 1182; Mul 1182 817 1452; Mul 1335 310 1603; Add 1182 1182 1335; Mul 1335 814 1147;
  Mul 1297 327 1660; Add 1335 1335 1297; Mul 1297 732 1526; Mul 1127 318 1673].
Definition casadi_f0_340 : list instruction := [
  Add 1297 1297 1127; Add 1335 1335 1297; Add 1182 1182 1335; Sub 1604 1604 1182; Mul 1604 5 1604;
  Mul 1182 852 1148; Add 1604 1604 1182; Add 1485 1485 1604; Sub 1562 1562 1485; Mul 1485 761 1562;
  Add 1568 1568 1485; Add 1676 1676 1568; Div 1568 1385 92; Mul 1485 1619 1037; Sub 1568 1568 1485;
  Mul 1485 833 1568; Mul 1604 645 1514; Mul 1110 736 1110; Add 1604 1604 1110; Mul 1110 666 1670;
  Mul 1318 741 1318; Add 1110 1110 1318; Add 1625 1625 1507; Add 1110 1110 1625; Add 1604 1604 1110;
  Mul 1110 593 1594; Mul 1584 358 1584; Add 1110 1110 1584; Mul 1584 36 1498; Mul 1368 372 1368;
  Add 1584 1584 1368; Add 1695 1695 1149; Add 1584 1584 1695; Add 1110 1110 1584; Sub 1604 1604 1110;
  Mul 1110 0 1604; Mul 1482 849 1482; Add 1110 1110 1482; Mul 1482 372 1230; Mul 1584 438 1498;
  Add 1482 1482 1584; Mul 1584 369 1268; Mul 1695 434 1415; Add 1584 1584 1695; Sub 1482 1482 1584;
  Sub 1482 1514 1482; Mul 1482 430 1482; Mul 1584 545 1482; Mul 1042 856 1042; Add 1584 1584 1042;
  Mul 1042 358 1268; Mul 1695 434 1594; Add 1042 1042 1695; Mul 1695 372 1093; Mul 1149 445 1498;
  Add 1695 1695 1149; Sub 1042 1042 1695; Sub 1042 1343 1042; Mul 1042 430 1042; Mul 1695 504 1042;
  Mul 1338 858 1338; Add 1695 1695 1338; Mul 1338 369 1093; Mul 1149 445 1415; Add 1338 1338 1149;
  Mul 1149 358 1230; Mul 1368 438 1594; Add 1149 1149 1368; Sub 1338 1338 1149; Sub 1338 1670 1338;
  Mul 1338 430 1338; Mul 1149 541 1338; Mul 1310 860 1310; Add 1149 1149 1310; Sub 1695 1695 1149;
  Add 1584 1584 1695; Mul 1695 860 1093; Mul 1149 445 1338; Add 1695 1695 1149; Mul 1149 856 1268;
  Mul 1310 434 1482; Add 1149 1149 1310; Sub 1695 1695 1149; Mul 1149 358 1096; Mul 1310 443 1594;
  Add 1149 1149 1310; Mul 1310 372 1677; Mul 1368 426 1498; Add 1310 1310 1368; Add 1149 1149 1310;
  Mul 1495 369 1495; Mul 1310 478 1415; Add 1495 1495 1310; Add 1149 1149 1495; Sub 1695 1695 1149;
  Mul 1149 508 1695; Mul 1276 859 1276; Add 1149 1149 1276; Mul 1276 856 1230; Mul 1495 438 1482;
  Add 1276 1276 1495; Mul 1093 858 1093; Mul 1495 445 1042; Add 1093 1093 1495; Sub 1276 1276 1093;
  Mul 1093 358 1398; Mul 1495 609 1594; Add 1093 1093 1495; Mul 1571 372 1571; Mul 1495 604 1498;
  Add 1571 1571 1495; Add 1093 1093 1571; Mul 1677 369 1677; Mul 1571 426 1415; Add 1677 1677 1571;
  Add 1093 1093 1677; Sub 1276 1276 1093; Mul 1093 536 1276; Mul 1511 862 1511; Add 1093 1093 1511;
  Sub 1149 1149 1093; Mul 1268 858 1268; Mul 1093 434 1042; Add 1268 1268 1093; Mul 1230 860 1230;
  Mul 1093 438 1338; Add 1230 1230 1093; Sub 1268 1268 1230; Mul 1230 13 1594; Mul 1536 358 1536;
  Sub 1230 1230 1536; Mul 1398 372 1398; Mul 1536 609 1498; Add 1398 1398 1536; Add 1230 1230 1398;
  Mul 1096 369 1096; Mul 1398 443 1415; Add 1096 1096 1398; Add 1230 1230 1096; Sub 1268 1268 1230;
  Mul 1230 526 1268; Mul 1340 863 1340; Add 1230 1230 1340; Sub 1149 1149 1230; Add 1584 1584 1149;
  Add 1142 1142 1406; Mul 1406 803 1498; Mul 1175 372 1175; Add 1406 1406 1175].
Definition casadi_f0_341 : list instruction := [
  Mul 1175 648 1415; Mul 1550 369 1550; Add 1175 1175 1550; Add 1406 1406 1175; Add 1142 1142 1406;
  Mul 1406 540 1142; Mul 1539 861 1539; Sub 1406 1406 1539; Mul 1539 394 1594; Mul 1109 358 1109;
  Add 1539 1539 1109; Add 1254 1254 1210; Mul 1210 669 1415; Mul 1128 369 1128; Add 1210 1210 1128;
  Add 1254 1254 1210; Add 1539 1539 1254; Mul 1254 544 1539; Mul 1055 865 1055; Add 1254 1254 1055;
  Add 1406 1406 1254; Mul 1254 801 1514; Mul 1231 736 1231; Add 1254 1254 1231; Add 1401 1401 1686;
  Mul 1686 355 1343; Mul 1284 738 1284; Add 1686 1686 1284; Add 1401 1401 1686; Add 1254 1254 1401;
  Mul 1401 359 1594; Mul 1122 358 1122; Add 1401 1401 1122; Add 1645 1645 1143; Mul 1143 608 1415;
  Mul 1345 369 1345; Add 1143 1143 1345; Add 1645 1645 1143; Add 1401 1401 1645; Sub 1254 1254 1401;
  Mul 1401 216 1254; Mul 1611 866 1611; Sub 1401 1401 1611; Add 1285 1285 1641; Mul 1641 457 1670;
  Mul 1384 741 1384; Add 1641 1641 1384; Mul 1384 234 1343; Mul 1475 738 1475; Add 1384 1384 1475;
  Add 1641 1641 1384; Add 1285 1285 1641; Add 1631 1631 1258; Mul 1258 352 1498; Mul 1219 372 1219;
  Add 1258 1258 1219; Mul 1219 622 1415; Mul 1481 369 1481; Add 1219 1219 1481; Add 1258 1258 1219;
  Add 1631 1631 1258; Sub 1285 1285 1631; Mul 1631 215 1285; Mul 1487 868 1487; Add 1631 1631 1487;
  Sub 1487 1401 1631; Add 1406 1406 1487; Add 1584 1584 1406; Mul 1584 1 1584; Mul 1374 857 1374;
  Add 1584 1584 1374; Add 1110 1110 1584; Mul 1584 678 1482; Mul 1665 856 1665; Add 1584 1584 1665;
  Mul 1665 673 1338; Mul 1092 860 1092; Add 1665 1665 1092; Mul 1092 799 1042; Mul 1564 858 1564;
  Add 1092 1092 1564; Add 1665 1665 1092; Add 1584 1584 1665; Mul 1665 602 1268; Mul 1163 863 1163;
  Add 1665 1665 1163; Mul 1163 670 1276; Mul 1431 862 1431; Add 1163 1163 1431; Mul 1431 671 1695;
  Mul 1283 859 1283; Add 1431 1431 1283; Sub 1163 1163 1431; Add 1665 1665 1163; Add 1584 1584 1665;
  Mul 1665 245 1594; Mul 1515 358 1515; Add 1665 1665 1515; Mul 1515 356 1498; Mul 1450 372 1450;
  Add 1515 1515 1450; Add 1079 1079 1301; Add 1515 1515 1079; Add 1665 1665 1515; Mul 1515 676 1665;
  Mul 1474 871 1474; Add 1515 1515 1474; Mul 1474 680 1539; Mul 1573 865 1573; Add 1474 1474 1573;
  Sub 1515 1515 1474; Mul 1474 674 1142; Mul 1362 861 1362; Sub 1474 1474 1362; Sub 1515 1515 1474;
  Sub 1631 1631 1401; Add 1515 1515 1631; Add 1584 1584 1515; Mul 1584 2 1584; Mul 1646 864 1646;
  Add 1584 1584 1646; Add 1110 1110 1584; Mul 1584 717 1482; Mul 1690 856 1690; Add 1584 1584 1690;
  Mul 1690 787 1042; Mul 1121 858 1121; Add 1690 1690 1121; Mul 1121 713 1338; Mul 1389 860 1389;
  Add 1121 1121 1389; Sub 1690 1690 1121; Add 1584 1584 1690; Mul 1690 677 1695; Mul 1617 859 1617;
  Add 1690 1690 1617; Mul 1617 712 1276; Mul 1097 862 1097; Add 1617 1617 1097; Sub 1690 1690 1617;
  Mul 1617 706 1268; Mul 1688 863 1688; Add 1617 1617 1688; Sub 1690 1690 1617; Add 1584 1584 1690;
  Mul 1690 714 1142; Mul 1484 861 1484; Add 1690 1690 1484; Mul 1484 718 1539].
Definition casadi_f0_342 : list instruction := [
  Mul 1208 865 1208; Add 1484 1484 1208; Mul 1208 716 1665; Mul 1289 871 1289; Add 1208 1208 1289;
  Sub 1484 1484 1208; Add 1690 1690 1484; Add 1690 1690 1487; Add 1584 1584 1690; Mul 1584 3 1584;
  Mul 1439 872 1439; Add 1584 1584 1439; Add 1110 1110 1584; Mul 1482 729 1482; Mul 1700 856 1700;
  Add 1482 1482 1700; Mul 1338 724 1338; Mul 1352 860 1352; Add 1338 1338 1352; Mul 1042 688 1042;
  Mul 1561 858 1561; Add 1042 1042 1561; Add 1338 1338 1042; Add 1482 1482 1338; Mul 1268 715 1268;
  Mul 1339 863 1339; Add 1268 1268 1339; Mul 1276 721 1276; Mul 1427 862 1427; Add 1276 1276 1427;
  Mul 1695 722 1695; Mul 1652 859 1652; Add 1695 1695 1652; Add 1276 1276 1695; Add 1268 1268 1276;
  Add 1482 1482 1268; Mul 1142 725 1142; Mul 1576 861 1576; Add 1142 1142 1576; Mul 1539 731 1539;
  Mul 1250 865 1250; Add 1539 1539 1250; Mul 1665 727 1665; Mul 1417 871 1417; Add 1665 1665 1417;
  Add 1539 1539 1665; Add 1142 1142 1539; Mul 1285 310 1285; Mul 1452 868 1452; Add 1285 1285 1452;
  Mul 1254 327 1254; Mul 1147 866 1147; Add 1254 1254 1147; Mul 1604 318 1604; Mul 1526 849 1526;
  Add 1604 1604 1526; Add 1254 1254 1604; Add 1285 1285 1254; Add 1142 1142 1285; Sub 1482 1482 1142;
  Mul 1482 4 1482; Mul 1344 869 1344; Add 1482 1482 1344; Add 1110 1110 1482; Mul 1514 820 1514;
  Mul 1412 736 1412; Add 1514 1514 1412; Mul 1670 822 1670; Mul 1423 741 1423; Add 1670 1670 1423;
  Mul 1343 788 1343; Mul 1026 738 1026; Add 1343 1343 1026; Add 1670 1670 1343; Add 1514 1514 1670;
  Mul 1594 817 1594; Mul 1603 358 1603; Add 1594 1594 1603; Mul 1498 814 1498; Mul 1660 372 1660;
  Add 1498 1498 1660; Mul 1415 732 1415; Mul 1673 369 1673; Add 1415 1415 1673; Add 1498 1498 1415;
  Add 1594 1594 1498; Sub 1514 1514 1594; Mul 1514 5 1514; Mul 1148 870 1148; Add 1514 1514 1148;
  Add 1110 1110 1514; Sub 1234 1234 1110; Mul 1110 754 1234; Add 1485 1485 1110; Add 1676 1676 1485;
  Mul 1485 210 1385; Mul 1110 200 1198; Add 1485 1485 1110; Mul 1508 19 1508; Mul 1110 196 1521;
  Sub 1508 1508 1110; Mul 1110 189 1392; Mul 1612 35 1612; Sub 1110 1110 1612; Sub 1508 1508 1110;
  Mul 1524 55 1524; Mul 1470 62 1470; Add 1524 1524 1470; Add 1508 1508 1524; Mul 1136 86 1136;
  Mul 1678 91 1678; Add 1136 1136 1678; Add 1136 1508 1136; Mul 1290 102 1290; Sub 1290 1136 1290;
  Mul 1678 777 1290; Mul 1524 209 1656; Add 1678 1678 1524; Add 1485 1485 1678; Mul 1678 778 1136;
  Mul 1524 867 1135; Add 1678 1678 1524; Add 1485 1485 1678; Mul 1678 769 1508; Mul 1524 855 1657;
  Add 1678 1678 1524; Add 1485 1485 1678; Mul 1678 761 1505; Mul 1524 201 1323; Add 1678 1678 1524;
  Sub 1485 1485 1678; Mul 1678 873 1568; Add 1485 1485 1678; Mul 1678 1006 1485; Mul 1524 210 1485;
  Mul 1470 756 1198; Add 1524 1524 1470; Sub 1385 1385 1524; Mul 1524 881 1385; Mul 1470 210 1159;
  Mul 1110 143 1198; Add 1470 1470 1110; Sub 1462 1462 1077; Sub 1429 1429 1024; Mul 1429 37 1429;
  Add 1462 1462 1429; Sub 1265 1265 1158; Mul 1265 80 1265; Add 1265 1462 1265].
Definition casadi_f0_343 : list instruction := [
  Sub 1578 1578 1592; Mul 1578 100 1578; Add 1578 1265 1578; Mul 1186 1064 1186; Mul 1207 1061 1207;
  Add 1186 1186 1207; Mul 1186 141 1186; Add 1578 1578 1186; Mul 1186 777 1578; Mul 1207 876 1656;
  Add 1186 1186 1207; Add 1470 1470 1186; Mul 1683 151 1683; Mul 1426 103 1426; Add 1683 1683 1426;
  Mul 1035 148 1035; Mul 1632 105 1632; Add 1035 1035 1632; Sub 1683 1683 1035; Sub 1683 1683 1265;
  Mul 1591 102 1591; Sub 1591 1683 1591; Mul 1265 778 1591; Mul 1035 153 1135; Add 1265 1265 1035;
  Sub 1470 1470 1265; Mul 1349 1057 1349; Mul 1074 1065 1074; Sub 1349 1349 1074; Mul 1349 156 1349;
  Add 1462 1462 1349; Mul 1531 86 1531; Mul 1217 91 1217; Sub 1531 1531 1217; Add 1531 1462 1531;
  Mul 1048 102 1048; Sub 1048 1531 1048; Mul 1217 769 1048; Mul 1349 171 1657; Add 1217 1217 1349;
  Add 1470 1470 1217; Mul 1392 180 1392; Mul 1174 35 1174; Add 1392 1392 1174; Mul 1408 19 1408;
  Mul 1521 182 1521; Sub 1408 1408 1521; Sub 1392 1392 1408; Mul 1083 55 1083; Add 1392 1392 1083;
  Mul 1126 86 1126; Mul 1418 91 1418; Add 1126 1126 1418; Add 1126 1392 1126; Mul 1307 102 1307;
  Sub 1307 1126 1307; Mul 1418 761 1307; Mul 1083 188 1323; Add 1418 1418 1083; Add 1470 1470 1418;
  Mul 1418 754 1290; Mul 1083 209 1568; Add 1418 1418 1083; Add 1470 1470 1418; Mul 1418 210 1470;
  Mul 1083 875 1198; Add 1418 1418 1083; Sub 1159 1159 1418; Div 1418 1159 65; Mul 1159 89 1159;
  Mul 1083 777 1470; Mul 1408 875 1656; Add 1083 1083 1408; Sub 1578 1578 1083; Mul 1083 58 1578;
  Add 1159 1159 1083; Mul 1083 778 1470; Mul 1408 875 1135; Add 1083 1083 1408; Add 1083 1591 1083;
  Mul 1408 45 1083; Add 1159 1159 1408; Mul 1408 769 1470; Mul 1521 875 1657; Add 1408 1408 1521;
  Sub 1408 1048 1408; Mul 1521 22 1408; Add 1159 1159 1521; Mul 1521 761 1470; Mul 1174 875 1323;
  Add 1521 1521 1174; Sub 1521 1307 1521; Mul 1174 879 1521; Add 1159 1159 1174; Mul 1174 754 1470;
  Mul 1217 875 1568; Add 1174 1174 1217; Sub 1174 1290 1174; Mul 1217 880 1174; Add 1159 1159 1217;
  Div 1159 1159 1045; Mul 1217 1078 1159; Sub 1418 1418 1217; Mul 1217 874 1418; Add 1524 1524 1217;
  Mul 1217 777 1485; Mul 1349 756 1656; Add 1217 1217 1349; Sub 1290 1290 1217; Mul 1217 884 1290;
  Div 1578 1578 65; Mul 1349 1029 1159; Sub 1578 1578 1349; Mul 1349 883 1578; Add 1217 1217 1349;
  Add 1524 1524 1217; Mul 1217 778 1485; Mul 1349 756 1135; Add 1217 1217 1349; Sub 1217 1217 1136;
  Mul 1349 886 1217; Div 1083 1083 65; Mul 1074 1063 1159; Sub 1083 1083 1074; Mul 1074 885 1083;
  Add 1349 1349 1074; Add 1524 1524 1349; Mul 1349 769 1485; Mul 1074 756 1657; Add 1349 1349 1074;
  Sub 1349 1508 1349; Mul 1074 888 1349; Div 1408 1408 65; Mul 1265 1040 1159; Sub 1408 1408 1265;
  Mul 1265 887 1408; Add 1074 1074 1265; Add 1524 1524 1074; Mul 1074 761 1485; Mul 1265 756 1323;
  Add 1074 1074 1265; Add 1074 1505 1074; Mul 1265 890 1074; Div 1521 1521 65; Mul 1035 1027 1159;
  Sub 1521 1521 1035; Mul 1035 889 1521; Add 1265 1265 1035; Sub 1524 1524 1265].
Definition casadi_f0_344 : list instruction := [
  Div 1174 1174 65; Mul 1265 1046 1159; Sub 1174 1174 1265; Mul 1265 891 1174; Mul 1485 754 1485;
  Mul 1035 756 1568; Add 1485 1485 1035; Mul 1035 892 1485; Sub 1265 1265 1035; Add 1524 1524 1265;
  Mul 1265 881 1524; Mul 1035 882 1418; Add 1265 1265 1035; Sub 1385 1385 1265; Mul 1265 884 1524;
  Mul 1035 882 1578; Add 1265 1265 1035; Sub 1290 1290 1265; Mul 1265 910 1290; Mul 1035 777 1591;
  Mul 1632 153 1656; Add 1035 1035 1632; Mul 1632 210 1685; Mul 1426 154 1198; Add 1632 1632 1426;
  Sub 1035 1035 1632; Mul 1632 778 1683; Mul 1426 106 1135; Add 1632 1632 1426; Add 1035 1035 1632;
  Mul 1632 769 1531; Mul 1426 877 1657; Add 1632 1632 1426; Sub 1035 1035 1632; Mul 1632 761 1126;
  Mul 1426 94 1323; Add 1632 1632 1426; Sub 1035 1035 1632; Mul 1632 754 1136; Mul 1426 867 1568;
  Add 1632 1632 1426; Sub 1035 1035 1632; Mul 1632 777 1035; Mul 1426 895 1656; Add 1632 1632 1426;
  Sub 1591 1591 1632; Mul 1632 884 1591; Mul 1426 896 1578; Add 1632 1632 1426; Mul 1426 210 1035;
  Mul 1186 895 1198; Add 1426 1426 1186; Add 1685 1685 1426; Mul 1426 881 1685; Mul 1186 898 1418;
  Add 1426 1426 1186; Sub 1632 1632 1426; Mul 1426 778 1035; Mul 1186 895 1135; Add 1426 1426 1186;
  Sub 1426 1426 1683; Mul 1683 886 1426; Mul 1186 899 1083; Add 1683 1683 1186; Add 1632 1632 1683;
  Mul 1683 769 1035; Mul 1186 895 1657; Add 1683 1683 1186; Add 1683 1531 1683; Mul 1186 888 1683;
  Mul 1207 900 1408; Add 1186 1186 1207; Sub 1632 1632 1186; Mul 1186 761 1035; Mul 1207 895 1323;
  Add 1186 1186 1207; Add 1186 1126 1186; Mul 1207 890 1186; Mul 1592 901 1521; Add 1207 1207 1592;
  Sub 1632 1632 1207; Mul 1207 754 1035; Mul 1592 895 1568; Add 1207 1207 1592; Add 1136 1136 1207;
  Mul 1207 892 1136; Mul 1592 902 1174; Add 1207 1207 1592; Sub 1632 1632 1207; Mul 1207 884 1632;
  Mul 1592 897 1578; Add 1207 1207 1592; Sub 1591 1591 1207; Div 1207 1591 905; Mul 1592 881 1632;
  Mul 1158 897 1418; Add 1592 1592 1158; Add 1685 1685 1592; Mul 1592 904 1685; Mul 1591 903 1591;
  Add 1592 1592 1591; Mul 1591 886 1632; Mul 1158 897 1083; Add 1591 1591 1158; Sub 1426 1426 1591;
  Mul 1591 906 1426; Add 1592 1592 1591; Mul 1591 888 1632; Mul 1158 897 1408; Add 1591 1591 1158;
  Add 1683 1683 1591; Mul 1591 907 1683; Add 1592 1592 1591; Mul 1591 890 1632; Mul 1158 897 1521;
  Add 1591 1591 1158; Add 1186 1186 1591; Mul 1591 908 1186; Add 1592 1592 1591; Mul 1591 892 1632;
  Mul 1158 897 1174; Add 1591 1591 1158; Add 1136 1136 1591; Mul 1591 909 1136; Add 1592 1592 1591;
  Div 1592 1592 1067; Mul 1591 1214 1592; Sub 1207 1207 1591; Mul 1591 894 1207; Add 1265 1265 1591;
  Mul 1591 912 1385; Div 1685 1685 905; Mul 1158 1614 1592; Sub 1685 1685 1158; Mul 1158 893 1685;
  Add 1591 1591 1158; Sub 1265 1265 1591; Mul 1591 886 1524; Mul 1158 882 1083; Add 1591 1591 1158;
  Sub 1217 1217 1591; Mul 1591 914 1217; Div 1426 1426 905; Mul 1158 1273 1592; Sub 1426 1426 1158;
  Mul 1158 913 1426; Add 1591 1591 1158; Add 1265 1265 1591; Mul 1591 888 1524].
Definition casadi_f0_345 : list instruction := [
  Mul 1158 882 1408; Add 1591 1591 1158; Sub 1349 1349 1591; Mul 1591 916 1349; Div 1683 1683 905;
  Mul 1158 1260 1592; Sub 1683 1683 1158; Mul 1158 915 1683; Add 1591 1591 1158; Sub 1265 1265 1591;
  Mul 1591 890 1524; Mul 1158 882 1521; Add 1591 1591 1158; Add 1074 1074 1591; Mul 1591 918 1074;
  Div 1186 1186 905; Mul 1158 1249 1592; Sub 1186 1186 1158; Mul 1158 917 1186; Add 1591 1591 1158;
  Add 1265 1265 1591; Div 1136 1136 905; Mul 1591 1569 1592; Sub 1136 1136 1591; Mul 1591 919 1136;
  Mul 1158 892 1524; Mul 1429 882 1174; Add 1158 1158 1429; Add 1485 1485 1158; Mul 1158 920 1485;
  Sub 1591 1591 1158; Sub 1265 1265 1591; Mul 1591 912 1265; Mul 1158 911 1685; Add 1591 1591 1158;
  Add 1385 1385 1591; Mul 1591 944 1385; Mul 1158 210 1028; Mul 1429 168 1198; Add 1158 1158 1429;
  Mul 1429 777 1048; Mul 1024 171 1656; Add 1429 1429 1024; Add 1158 1158 1429; Mul 1429 778 1531;
  Mul 1024 877 1135; Add 1429 1429 1024; Add 1158 1158 1429; Mul 1429 769 1462; Mul 1024 878 1657;
  Add 1429 1429 1024; Add 1158 1158 1429; Mul 1429 761 1392; Mul 1024 98 1323; Add 1429 1429 1024;
  Add 1158 1158 1429; Mul 1429 754 1508; Mul 1024 855 1568; Add 1429 1429 1024; Add 1158 1158 1429;
  Mul 1429 210 1158; Mul 1024 922 1198; Add 1429 1429 1024; Sub 1028 1028 1429; Mul 1429 881 1028;
  Mul 1024 923 1418; Add 1429 1429 1024; Mul 1024 777 1158; Mul 1077 922 1656; Add 1024 1024 1077;
  Sub 1048 1048 1024; Mul 1024 884 1048; Mul 1077 925 1578; Add 1024 1024 1077; Add 1429 1429 1024;
  Mul 1024 778 1158; Mul 1077 922 1135; Add 1024 1024 1077; Sub 1024 1024 1531; Mul 1531 886 1024;
  Mul 1077 926 1083; Add 1531 1531 1077; Add 1429 1429 1531; Mul 1531 769 1158; Mul 1077 922 1657;
  Add 1531 1531 1077; Sub 1462 1462 1531; Mul 1531 888 1462; Mul 1077 927 1408; Add 1531 1531 1077;
  Add 1429 1429 1531; Mul 1531 761 1158; Mul 1077 922 1323; Add 1531 1531 1077; Sub 1531 1392 1531;
  Mul 1077 890 1531; Mul 1110 928 1521; Add 1077 1077 1110; Add 1429 1429 1077; Mul 1077 754 1158;
  Mul 1110 922 1568; Add 1077 1077 1110; Sub 1508 1508 1077; Mul 1077 892 1508; Mul 1110 929 1174;
  Add 1077 1077 1110; Add 1429 1429 1077; Mul 1077 881 1429; Mul 1110 924 1418; Add 1077 1077 1110;
  Sub 1028 1028 1077; Mul 1077 884 1429; Mul 1110 924 1578; Add 1077 1077 1110; Sub 1048 1048 1077;
  Mul 1077 910 1048; Mul 1110 931 1207; Add 1077 1077 1110; Mul 1110 912 1028; Mul 1612 930 1685;
  Add 1110 1110 1612; Sub 1077 1077 1110; Mul 1110 886 1429; Mul 1612 924 1083; Add 1110 1110 1612;
  Sub 1024 1024 1110; Mul 1110 914 1024; Mul 1612 933 1426; Add 1110 1110 1612; Add 1077 1077 1110;
  Mul 1110 888 1429; Mul 1612 924 1408; Add 1110 1110 1612; Sub 1462 1462 1110; Mul 1110 916 1462;
  Mul 1612 934 1683; Add 1110 1110 1612; Sub 1077 1077 1110; Mul 1110 890 1429; Mul 1612 924 1521;
  Add 1110 1110 1612; Sub 1531 1531 1110; Mul 1110 918 1531; Mul 1612 935 1186; Add 1110 1110 1612;
  Sub 1077 1077 1110; Mul 1110 892 1429; Mul 1612 924 1174; Add 1110 1110 1612].
Definition casadi_f0_346 : list instruction := [
  Sub 1508 1508 1110; Mul 1110 920 1508; Mul 1612 936 1136; Add 1110 1110 1612; Sub 1077 1077 1110;
  Mul 1110 912 1077; Mul 1612 932 1685; Add 1110 1110 1612; Add 1028 1028 1110; Div 1110 1028 938;
  Mul 1028 937 1028; Mul 1612 910 1077; Mul 1514 932 1207; Add 1612 1612 1514; Sub 1048 1048 1612;
  Mul 1612 939 1048; Add 1028 1028 1612; Mul 1612 914 1077; Mul 1514 932 1426; Add 1612 1612 1514;
  Sub 1024 1024 1612; Mul 1612 940 1024; Add 1028 1028 1612; Mul 1612 916 1077; Mul 1514 932 1683;
  Add 1612 1612 1514; Add 1462 1462 1612; Mul 1612 941 1462; Add 1028 1028 1612; Mul 1612 918 1077;
  Mul 1514 932 1186; Add 1612 1612 1514; Add 1531 1531 1612; Mul 1612 942 1531; Add 1028 1028 1612;
  Mul 1612 920 1077; Mul 1514 932 1136; Add 1612 1612 1514; Add 1508 1508 1612; Mul 1612 943 1508;
  Add 1028 1028 1612; Div 1028 1028 1615; Mul 1612 1446 1028; Sub 1110 1110 1612; Mul 1612 921 1110;
  Add 1591 1591 1612; Mul 1612 910 1265; Mul 1514 911 1207; Add 1612 1612 1514; Sub 1290 1290 1612;
  Mul 1612 947 1290; Div 1048 1048 938; Mul 1514 1184 1028; Sub 1048 1048 1514; Mul 1514 946 1048;
  Add 1612 1612 1514; Add 1591 1591 1612; Mul 1612 914 1265; Mul 1514 911 1426; Add 1612 1612 1514;
  Sub 1217 1217 1612; Mul 1612 949 1217; Div 1024 1024 938; Mul 1514 1160 1028; Sub 1024 1024 1514;
  Mul 1514 948 1024; Add 1612 1612 1514; Add 1591 1591 1612; Mul 1612 916 1265; Mul 1514 911 1683;
  Add 1612 1612 1514; Add 1349 1349 1612; Mul 1612 951 1349; Div 1462 1462 938; Mul 1514 1328 1028;
  Sub 1462 1462 1514; Mul 1514 950 1462; Add 1612 1612 1514; Add 1591 1591 1612; Mul 1612 918 1265;
  Mul 1514 911 1186; Add 1612 1612 1514; Sub 1612 1612 1074; Mul 1074 953 1612; Div 1531 1531 938;
  Mul 1514 1155 1028; Sub 1531 1531 1514; Mul 1514 952 1531; Add 1074 1074 1514; Add 1591 1591 1074;
  Mul 1074 920 1265; Mul 1514 911 1136; Add 1074 1074 1514; Sub 1074 1074 1485; Mul 1485 955 1074;
  Div 1508 1508 938; Mul 1514 1220 1028; Sub 1508 1508 1514; Mul 1514 954 1508; Add 1485 1485 1514;
  Add 1591 1591 1485; Mul 1485 944 1591; Mul 1514 945 1110; Add 1485 1485 1514; Sub 1385 1385 1485;
  Mul 1485 986 1385; Mul 1514 210 1020; Mul 1148 175 1198; Add 1514 1514 1148; Mul 1148 777 1307;
  Mul 1594 188 1656; Add 1148 1148 1594; Add 1514 1514 1148; Mul 1148 778 1126; Mul 1594 94 1135;
  Add 1148 1148 1594; Add 1514 1514 1148; Mul 1148 769 1392; Mul 1594 98 1657; Add 1148 1148 1594;
  Add 1514 1514 1148; Mul 1148 761 1053; Mul 1594 172 1323; Add 1148 1148 1594; Sub 1514 1514 1148;
  Mul 1148 754 1505; Mul 1594 201 1568; Add 1148 1148 1594; Sub 1514 1514 1148; Mul 1148 210 1514;
  Mul 1198 957 1198; Add 1148 1148 1198; Sub 1020 1020 1148; Mul 1148 881 1020; Mul 1198 958 1418;
  Add 1148 1148 1198; Mul 1198 777 1514; Mul 1656 957 1656; Add 1198 1198 1656; Sub 1307 1307 1198;
  Mul 1198 884 1307; Mul 1656 960 1578; Add 1198 1198 1656; Add 1148 1148 1198; Mul 1198 778 1514;
  Mul 1135 957 1135; Add 1198 1198 1135; Sub 1198 1198 1126; Mul 1126 886 1198].
Definition casadi_f0_347 : list instruction := [
  Mul 1135 961 1083; Add 1126 1126 1135; Add 1148 1148 1126; Mul 1126 769 1514; Mul 1657 957 1657;
  Add 1126 1126 1657; Sub 1392 1392 1126; Mul 1126 888 1392; Mul 1657 962 1408; Add 1126 1126 1657;
  Add 1148 1148 1126; Mul 1126 761 1514; Mul 1323 957 1323; Add 1126 1126 1323; Add 1053 1053 1126;
  Mul 1126 890 1053; Mul 1323 963 1521; Add 1126 1126 1323; Sub 1148 1148 1126; Mul 1126 754 1514;
  Mul 1568 957 1568; Add 1126 1126 1568; Add 1505 1505 1126; Mul 1126 892 1505; Mul 1568 964 1174;
  Add 1126 1126 1568; Sub 1148 1148 1126; Mul 1126 881 1148; Mul 1568 959 1418; Add 1126 1126 1568;
  Sub 1020 1020 1126; Mul 1126 884 1148; Mul 1568 959 1578; Add 1126 1126 1568; Sub 1307 1307 1126;
  Mul 1126 910 1307; Mul 1568 966 1207; Add 1126 1126 1568; Mul 1568 912 1020; Mul 1323 965 1685;
  Add 1568 1568 1323; Sub 1126 1126 1568; Mul 1568 886 1148; Mul 1323 959 1083; Add 1568 1568 1323;
  Sub 1198 1198 1568; Mul 1568 914 1198; Mul 1323 968 1426; Add 1568 1568 1323; Add 1126 1126 1568;
  Mul 1568 888 1148; Mul 1323 959 1408; Add 1568 1568 1323; Sub 1392 1392 1568; Mul 1568 916 1392;
  Mul 1323 969 1683; Add 1568 1568 1323; Sub 1126 1126 1568; Mul 1568 890 1148; Mul 1323 959 1521;
  Add 1568 1568 1323; Add 1053 1053 1568; Mul 1568 918 1053; Mul 1323 970 1186; Add 1568 1568 1323;
  Add 1126 1126 1568; Mul 1568 892 1148; Mul 1323 959 1174; Add 1568 1568 1323; Add 1505 1505 1568;
  Mul 1568 920 1505; Mul 1323 971 1136; Add 1568 1568 1323; Add 1126 1126 1568; Mul 1568 912 1126;
  Mul 1323 967 1685; Add 1568 1568 1323; Add 1020 1020 1568; Mul 1568 944 1020; Mul 1323 972 1110;
  Add 1568 1568 1323; Mul 1323 910 1126; Mul 1657 967 1207; Add 1323 1323 1657; Sub 1307 1307 1323;
  Mul 1323 947 1307; Mul 1657 974 1048; Add 1323 1323 1657; Add 1568 1568 1323; Mul 1323 914 1126;
  Mul 1657 967 1426; Add 1323 1323 1657; Sub 1198 1198 1323; Mul 1323 949 1198; Mul 1657 975 1024;
  Add 1323 1323 1657; Add 1568 1568 1323; Mul 1323 916 1126; Mul 1657 967 1683; Add 1323 1323 1657;
  Add 1392 1392 1323; Mul 1323 951 1392; Mul 1657 976 1462; Add 1323 1323 1657; Add 1568 1568 1323;
  Mul 1323 918 1126; Mul 1657 967 1186; Add 1323 1323 1657; Sub 1323 1323 1053; Mul 1053 953 1323;
  Mul 1657 977 1531; Add 1053 1053 1657; Add 1568 1568 1053; Mul 1053 920 1126; Mul 1657 967 1136;
  Add 1053 1053 1657; Sub 1053 1053 1505; Mul 1505 955 1053; Mul 1657 978 1508; Add 1505 1505 1657;
  Add 1568 1568 1505; Mul 1505 944 1568; Mul 1657 973 1110; Add 1505 1505 1657; Sub 1020 1020 1505;
  Div 1505 1020 980; Mul 1020 979 1020; Mul 1657 947 1568; Mul 1135 973 1048; Add 1657 1657 1135;
  Sub 1307 1307 1657; Mul 1657 981 1307; Add 1020 1020 1657; Mul 1657 949 1568; Mul 1135 973 1024;
  Add 1657 1657 1135; Sub 1198 1198 1657; Mul 1657 982 1198; Add 1020 1020 1657; Mul 1657 951 1568;
  Mul 1135 973 1462; Add 1657 1657 1135; Sub 1392 1392 1657; Mul 1657 983 1392; Add 1020 1020 1657;
  Mul 1657 953 1568; Mul 1135 973 1531; Add 1657 1657 1135; Sub 1323 1323 1657].
Definition casadi_f0_348 : list instruction := [
  Mul 1657 984 1323; Add 1020 1020 1657; Mul 1657 955 1568; Mul 1135 973 1508; Add 1657 1657 1135;
  Sub 1053 1053 1657; Mul 1657 985 1053; Add 1020 1020 1657; Div 1020 1020 1630; Mul 1657 1629 1020;
  Sub 1505 1505 1657; Mul 1657 956 1505; Add 1485 1485 1657; Mul 1657 947 1591; Mul 1135 945 1048;
  Add 1657 1657 1135; Sub 1290 1290 1657; Mul 1657 989 1290; Div 1307 1307 980; Mul 1135 1262 1020;
  Sub 1307 1307 1135; Mul 1135 988 1307; Add 1657 1657 1135; Add 1485 1485 1657; Mul 1657 949 1591;
  Mul 1135 945 1024; Add 1657 1657 1135; Sub 1217 1217 1657; Mul 1657 991 1217; Div 1198 1198 980;
  Mul 1135 1306 1020; Sub 1198 1198 1135; Mul 1135 990 1198; Add 1657 1657 1135; Add 1485 1485 1657;
  Mul 1657 951 1591; Mul 1135 945 1462; Add 1657 1657 1135; Sub 1349 1349 1657; Mul 1657 993 1349;
  Div 1392 1392 980; Mul 1135 1626 1020; Sub 1392 1392 1135; Mul 1135 992 1392; Add 1657 1657 1135;
  Add 1485 1485 1657; Mul 1657 953 1591; Mul 1135 945 1531; Add 1657 1657 1135; Sub 1612 1612 1657;
  Mul 1657 995 1612; Div 1323 1323 980; Mul 1135 1530 1020; Sub 1323 1323 1135; Mul 1135 994 1323;
  Add 1657 1657 1135; Add 1485 1485 1657; Mul 1657 955 1591; Mul 1135 945 1508; Add 1657 1657 1135;
  Sub 1074 1074 1657; Mul 1657 997 1074; Div 1053 1053 980; Mul 1135 1472 1020; Sub 1053 1053 1135;
  Mul 1135 996 1053; Add 1657 1657 1135; Add 1485 1485 1657; Mul 1657 986 1485; Mul 1135 987 1505;
  Add 1657 1657 1135; Sub 1385 1385 1657; Div 1657 1385 999; Mul 1385 998 1385; Mul 1135 989 1485;
  Mul 1656 987 1307; Add 1135 1135 1656; Sub 1290 1290 1135; Mul 1135 1000 1290; Add 1385 1385 1135;
  Mul 1135 991 1485; Mul 1656 987 1198; Add 1135 1135 1656; Sub 1217 1217 1135; Mul 1135 1001 1217;
  Add 1385 1385 1135; Mul 1135 993 1485; Mul 1656 987 1392; Add 1135 1135 1656; Sub 1349 1349 1135;
  Mul 1135 1002 1349; Add 1385 1385 1135; Mul 1135 995 1485; Mul 1656 987 1323; Add 1135 1135 1656;
  Sub 1612 1612 1135; Mul 1135 1003 1612; Add 1385 1385 1135; Mul 1135 997 1485; Mul 1656 987 1053;
  Add 1135 1135 1656; Sub 1074 1074 1135; Mul 1135 1004 1074; Add 1385 1385 1135; Div 1385 1385 1095;
  Mul 1135 1596 1385; Sub 1657 1657 1135; Mul 1657 211 1657; Mul 1135 1005 1490; Sub 1657 1657 1135;
  Div 1290 1290 999; Mul 1135 1331 1385; Sub 1290 1290 1135; Mul 1290 779 1290; Mul 1135 1007 1117;
  Sub 1290 1290 1135; Add 1657 1657 1290; Div 1217 1217 999; Mul 1290 1080 1385; Sub 1217 1217 1290;
  Mul 1217 767 1217; Mul 1290 1008 1377; Add 1217 1217 1290; Add 1657 1657 1217; Div 1349 1349 999;
  Mul 1217 1056 1385; Sub 1349 1349 1217; Mul 1349 775 1349; Mul 1217 1009 1165; Sub 1349 1349 1217;
  Add 1657 1657 1349; Div 1612 1612 999; Mul 1349 1068 1385; Sub 1612 1612 1349; Mul 1612 815 1612;
  Mul 1349 1010 1562; Add 1612 1612 1349; Add 1657 1657 1612; Div 1074 1074 999; Mul 1612 1178 1385;
  Sub 1074 1074 1612; Mul 1074 833 1074; Mul 1612 1011 1234; Add 1074 1074 1612; Add 1657 1657 1074;
  Div 1657 1657 999; Mul 1385 1033 1385; Sub 1657 1657 1385; Mul 1385 756 1657].
Definition casadi_f0_349 : list instruction := [
  Add 1678 1678 1385; Sub 1676 1676 1678; Mul 1514 1012 1514; Mul 1505 211 1505; Mul 1678 986 1490;
  Sub 1505 1505 1678; Mul 1307 779 1307; Mul 1678 989 1117; Sub 1307 1307 1678; Add 1505 1505 1307;
  Mul 1198 767 1198; Mul 1307 991 1377; Add 1198 1198 1307; Add 1505 1505 1198; Mul 1392 775 1392;
  Mul 1198 993 1165; Sub 1392 1392 1198; Add 1505 1505 1392; Mul 1323 815 1323; Mul 1392 995 1562;
  Add 1323 1323 1392; Add 1505 1505 1323; Mul 1053 833 1053; Mul 1323 997 1234; Add 1053 1053 1323;
  Add 1505 1505 1053; Mul 1485 1006 1485; Mul 1053 987 1657; Add 1485 1485 1053; Sub 1505 1505 1485;
  Div 1505 1505 980; Mul 1020 1534 1020; Sub 1505 1505 1020; Mul 1020 957 1505; Add 1514 1514 1020;
  Sub 1676 1676 1514; Mul 1158 1013 1158; Mul 1110 211 1110; Mul 1514 944 1490; Sub 1110 1110 1514;
  Mul 1048 779 1048; Mul 1514 947 1117; Sub 1048 1048 1514; Add 1110 1110 1048; Mul 1024 767 1024;
  Mul 1048 949 1377; Add 1024 1024 1048; Add 1110 1110 1024; Mul 1462 775 1462; Mul 1024 951 1165;
  Sub 1462 1462 1024; Add 1110 1110 1462; Mul 1531 815 1531; Mul 1462 953 1562; Add 1531 1531 1462;
  Add 1110 1110 1531; Mul 1508 833 1508; Mul 1531 955 1234; Add 1508 1508 1531; Add 1110 1110 1508;
  Mul 1591 1006 1591; Mul 1508 945 1657; Add 1591 1591 1508; Sub 1110 1110 1591; Mul 1568 1012 1568;
  Mul 1591 973 1505; Add 1568 1568 1591; Sub 1110 1110 1568; Div 1110 1110 938; Mul 1028 1397 1028;
  Sub 1110 1110 1028; Mul 1028 922 1110; Add 1158 1158 1028; Sub 1676 1676 1158; Mul 1035 1014 1035;
  Mul 1207 779 1207; Mul 1158 910 1117; Sub 1207 1207 1158; Mul 1685 211 1685; Mul 1158 912 1490;
  Sub 1685 1685 1158; Sub 1207 1207 1685; Mul 1426 767 1426; Mul 1685 914 1377; Add 1426 1426 1685;
  Add 1207 1207 1426; Mul 1683 775 1683; Mul 1426 916 1165; Sub 1683 1683 1426; Sub 1207 1207 1683;
  Mul 1186 815 1186; Mul 1683 918 1562; Add 1186 1186 1683; Sub 1207 1207 1186; Mul 1136 833 1136;
  Mul 1186 920 1234; Add 1136 1136 1186; Sub 1207 1207 1136; Mul 1265 1006 1265; Mul 1136 911 1657;
  Add 1265 1265 1136; Sub 1207 1207 1265; Mul 1126 1012 1126; Mul 1265 967 1505; Add 1126 1126 1265;
  Sub 1207 1207 1126; Mul 1077 1013 1077; Mul 1126 932 1110; Add 1077 1077 1126; Sub 1207 1207 1077;
  Div 1207 1207 905; Mul 1592 1553 1592; Sub 1207 1207 1592; Mul 1592 895 1207; Add 1035 1035 1592;
  Sub 1676 1676 1035; Mul 1470 1015 1470; Mul 1418 211 1418; Mul 1490 881 1490; Sub 1418 1418 1490;
  Mul 1578 779 1578; Mul 1117 884 1117; Sub 1578 1578 1117; Add 1418 1418 1578; Mul 1083 767 1083;
  Mul 1377 886 1377; Add 1083 1083 1377; Add 1418 1418 1083; Mul 1408 775 1408; Mul 1165 888 1165;
  Sub 1408 1408 1165; Add 1418 1418 1408; Mul 1521 815 1521; Mul 1562 890 1562; Add 1521 1521 1562;
  Add 1418 1418 1521; Mul 1174 833 1174; Mul 1234 892 1234; Add 1174 1174 1234; Add 1418 1418 1174;
  Mul 1524 1006 1524; Mul 1174 882 1657; Add 1524 1524 1174; Sub 1418 1418 1524; Mul 1148 1012 1148;
  Mul 1524 959 1505; Add 1148 1148 1524; Sub 1418 1418 1148; Mul 1429 1013 1429].
Definition casadi_f0_350 : list instruction := [
  Mul 1148 924 1110; Add 1429 1429 1148; Sub 1418 1418 1429; Mul 1632 1014 1632; Mul 1429 897 1207;
  Add 1632 1632 1429; Sub 1418 1418 1632; Div 1418 1418 65; Mul 1159 1623 1159; Sub 1418 1418 1159;
  Mul 1159 875 1418; Add 1470 1470 1159; Sub 1676 1676 1470; Div 1676 1676 92; Mul 1037 759 1037;
  Sub 1676 1676 1037; Out 1 66 1676; Out 1 67 1418; Out 1 68 1207; Out 1 69 1110; Out 1 70 1505; Out 1 71 1657;
  Arg 1657 1 78; Out 1 72 1657; Arg 1505 1 79; Out 1 73 1505; Arg 1110 1 80; Out 1 74 1110; Arg 1207 1 81;
  Out 1 75 1207; Arg 1418 1 82; Out 1 76 1418; Arg 1676 1 83; Out 1 77 1676; Arg 1037 1 74; Mul 1470 8 1037;
  Mul 1159 10 1470; Arg 1632 1 77; Mul 1429 16 1632; Mul 1148 21 1429; Mul 1632 15 1632; Mul 1524 18 1632;
  Mul 1174 14 1429; Add 1524 1524 1174; Mul 1174 15 1524; Sub 1148 1148 1174; Mul 1174 18 1429;
  Mul 1234 14 1632; Sub 1174 1174 1234; Mul 1174 16 1174; Mul 1234 17 1632; Sub 1174 1174 1234;
  Sub 1234 1148 1174; Mul 1521 28 1632; Mul 1562 26 1429; Add 1521 1521 1562; Mul 1562 1031 1521;
  Mul 1408 28 1429; Mul 1165 26 1632; Sub 1408 1408 1165; Mul 1165 29 1408; Sub 1083 1562 1165;
  Mul 1083 20 1083; Add 1234 1234 1083; Mul 1165 20 1165; Add 1148 1148 1165; Add 1234 1234 1148;
  Mul 1562 20 1562; Add 1174 1174 1562; Add 1174 1174 1148; Add 1562 1234 1174; Mul 1174 19 1174; Arg 1165 1 76;
  Mul 1083 35 1165; Mul 1377 30 1083; Sub 1174 1174 1377; Mul 1165 19 1165; Mul 1377 41 1165; Mul 1578 42 1429;
  Mul 1117 40 1632; Sub 1578 1578 1117; Mul 1117 43 1429; Sub 1578 1578 1117; Mul 1117 44 1408;
  Add 1578 1578 1117; Mul 1117 35 1578; Add 1377 1377 1117; Sub 1174 1174 1377; Mul 1377 19 1174;
  Mul 1117 38 1083; Sub 1377 1377 1117; Mul 1578 19 1578; Mul 1117 41 1083; Sub 1578 1578 1117;
  Mul 1117 12 1165; Mul 1234 35 1234; Add 1117 1117 1234; Sub 1578 1578 1117; Mul 1117 35 1578;
  Mul 1234 46 1165; Add 1117 1117 1234; Sub 1377 1377 1117; Sub 1562 1562 1377; Sub 1562 1562 1148;
  Mul 1117 50 1521; Mul 1234 1039 1117; Mul 1490 50 1408; Mul 1035 19 1490; Mul 1592 49 1083;
  Sub 1035 1035 1592; Mul 1592 51 1165; Sub 1035 1035 1592; Mul 1592 1041 1035; Sub 1077 1234 1592;
  Mul 1077 37 1077; Add 1562 1562 1077; Mul 1077 49 1165; Mul 1126 35 1490; Add 1077 1077 1126;
  Mul 1126 51 1083; Sub 1077 1077 1126; Mul 1126 64 1077; Add 1592 1126 1592; Mul 1592 37 1592;
  Add 1592 1148 1592; Add 1562 1562 1592; Mul 1265 43 1632; Mul 1136 42 1632; Mul 1186 40 1429;
  Add 1136 1136 1186; Sub 1265 1265 1136; Mul 1136 44 1521; Sub 1265 1265 1136; Mul 1136 67 1265;
  Mul 1186 19 1136; Mul 1683 71 1083; Sub 1186 1186 1683; Mul 1683 75 1165; Mul 1524 16 1524; Mul 1426 21 1632;
  Add 1524 1524 1426; Mul 1521 74 1521; Mul 1408 20 1408; Mul 1408 34 1408; Sub 1521 1521 1408;
  Add 1524 1524 1521; Add 1521 1524 1524; Mul 1408 35 1521; Sub 1683 1683 1408].
Definition casadi_f0_351 : list instruction := [
  Add 1186 1186 1683; Mul 1683 73 1165; Mul 1408 35 1524; Sub 1683 1683 1408; Mul 1408 19 1265;
  Mul 1426 70 1083; Sub 1408 1408 1426; Add 1683 1683 1408; Sub 1186 1186 1683; Mul 1683 76 1117;
  Mul 1408 37 1077; Mul 1426 57 1408; Sub 1683 1683 1426; Sub 1186 1186 1683; Mul 1683 67 1186;
  Mul 1683 66 1683; Arg 1426 1 75; Mul 1685 53 1426; Mul 1158 77 1685; Sub 1683 1683 1158; Mul 1426 66 1426;
  Mul 1158 11 1426; Mul 1028 53 1562; Add 1158 1158 1028; Sub 1683 1683 1158; Mul 1158 53 1683;
  Mul 1028 78 1426; Add 1158 1158 1028; Add 1562 1562 1158; Sub 1562 1562 1592; Mul 1028 87 1685;
  Mul 1568 83 1117; Mul 1591 66 1568; Add 1028 1028 1591; Mul 1591 88 1426; Mul 1077 83 1077; Mul 1508 53 1077;
  Add 1591 1591 1508; Add 1028 1028 1591; Mul 1591 1054 1028; Mul 1508 83 1035; Mul 1531 1058 1508;
  Sub 1462 1591 1531; Mul 1462 80 1462; Add 1562 1562 1462; Add 1592 1592 1158; Mul 1158 66 1077;
  Mul 1462 88 1685; Sub 1158 1158 1462; Mul 1462 87 1426; Mul 1024 53 1568; Sub 1462 1462 1024;
  Add 1158 1158 1462; Mul 1462 93 1158; Add 1531 1462 1531; Mul 1531 80 1531; Add 1592 1592 1531;
  Add 1562 1562 1592; Mul 1531 9 1562; Add 1159 1159 1531; Mul 1683 66 1683; Mul 1531 78 1685;
  Sub 1683 1683 1531; Sub 1683 1683 1186; Mul 1186 72 1028; Mul 1531 80 1158; Mul 1024 63 1531;
  Sub 1186 1186 1024; Sub 1683 1683 1186; Mul 1186 67 1683; Mul 1186 8 1186; Mul 1037 9 1037; Mul 1024 97 1037;
  Sub 1186 1186 1024; Add 1159 1159 1186; Mul 1186 9 1159; Mul 1024 84 1470; Add 1186 1186 1024;
  Sub 1024 1186 1592; Mul 1158 104 1158; Mul 1048 8 1158; Mul 1514 103 1037; Sub 1048 1048 1514;
  Mul 1514 105 1470; Mul 1020 104 1028; Mul 1485 9 1020; Sub 1514 1514 1485; Sub 1048 1048 1514;
  Mul 1514 33 1048; Mul 1485 104 1508; Mul 1053 1066 1485; Add 1323 1514 1053; Mul 1323 100 1323;
  Sub 1024 1024 1323; Mul 1159 8 1159; Mul 1323 84 1037; Sub 1159 1159 1323; Sub 1159 1159 1683;
  Mul 1683 103 1470; Mul 1323 9 1158; Add 1683 1683 1323; Mul 1323 105 1037; Mul 1392 8 1020;
  Add 1323 1323 1392; Sub 1683 1683 1323; Mul 1323 96 1683; Mul 1392 100 1048; Mul 1198 117 1392;
  Sub 1323 1323 1198; Add 1159 1159 1323; Mul 1159 67 1159; Mul 1159 114 1159; Arg 1323 1 73; Mul 1198 113 1323;
  Mul 1307 116 1198; Sub 1159 1159 1307; Mul 1323 114 1323; Mul 1307 119 1323; Sub 1562 1562 1186;
  Sub 1562 1562 1592; Mul 1592 1044 1683; Sub 1053 1592 1053; Mul 1053 100 1053; Add 1562 1562 1053;
  Sub 1562 1562 1024; Mul 1562 113 1562; Add 1307 1307 1562; Sub 1159 1159 1307; Mul 1159 113 1159;
  Mul 1307 118 1323; Add 1159 1159 1307; Sub 1024 1024 1159; Mul 1048 120 1048; Mul 1159 114 1048;
  Mul 1307 60 1198; Sub 1159 1159 1307; Mul 1307 121 1323; Mul 1562 120 1683; Mul 1053 113 1562;
  Add 1307 1307 1053; Add 1159 1159 1307; Mul 1307 112 1159; Mul 1053 120 1485; Mul 1186 123 1053;
  Add 1307 1307 1186; Mul 1307 99 1307; Sub 1024 1024 1307; Mul 1159 125 1159; Mul 1159 110 1159].
Definition casadi_f0_352 : list instruction := [
  Mul 1307 125 1053; Mul 1307 126 1307; Add 1159 1159 1307; Mul 1159 122 1159; Add 1024 1024 1159;
  Div 1159 1024 92; Mul 1024 6 1024; Mul 1307 130 1470; Mul 1578 19 1578; Mul 1186 46 1083; Sub 1578 1578 1186;
  Mul 1174 35 1174; Mul 1186 38 1165; Add 1174 1174 1186; Add 1578 1578 1174; Mul 1408 52 1408;
  Mul 1174 76 1035; Add 1408 1408 1174; Add 1578 1578 1408; Mul 1408 66 1578; Mul 1174 129 1685;
  Sub 1408 1408 1174; Mul 1174 132 1426; Mul 1186 70 1165; Mul 1678 35 1265; Add 1186 1186 1678;
  Mul 1678 73 1083; Mul 1385 19 1524; Add 1678 1678 1385; Add 1186 1186 1678; Mul 1521 19 1521;
  Mul 1678 75 1083; Add 1521 1521 1678; Mul 1136 35 1136; Mul 1678 71 1165; Add 1136 1136 1678;
  Add 1521 1521 1136; Sub 1186 1186 1521; Mul 1521 133 1117; Mul 1035 37 1035; Mul 1035 57 1035;
  Sub 1521 1521 1035; Sub 1186 1186 1521; Mul 1521 53 1186; Add 1174 1174 1521; Add 1408 1408 1174;
  Mul 1531 27 1531; Mul 1174 72 1508; Add 1531 1531 1174; Add 1408 1408 1531; Mul 1531 9 1408;
  Add 1307 1307 1531; Add 1531 1186 1186; Mul 1531 66 1531; Mul 1174 136 1685; Sub 1531 1531 1174;
  Mul 1174 129 1426; Mul 1521 53 1578; Add 1174 1174 1521; Sub 1531 1531 1174; Mul 1174 66 1186;
  Mul 1521 132 1685; Sub 1174 1174 1521; Sub 1531 1531 1174; Mul 1028 138 1028; Mul 1174 80 1508;
  Mul 1174 63 1174; Sub 1028 1028 1174; Sub 1531 1531 1028; Add 1028 1531 1531; Mul 1028 8 1028;
  Mul 1174 139 1037; Sub 1028 1028 1174; Add 1307 1307 1028; Mul 1028 8 1531; Mul 1174 137 1037;
  Sub 1028 1028 1174; Sub 1307 1307 1028; Mul 1683 140 1683; Mul 1028 100 1485; Mul 1028 117 1028;
  Sub 1683 1683 1028; Add 1307 1307 1683; Mul 1683 141 1053; Mul 1683 121 1683; Mul 1028 142 1562;
  Add 1683 1683 1028; Sub 1307 1307 1683; Mul 1307 114 1307; Mul 1683 134 1198; Sub 1307 1307 1683;
  Mul 1683 145 1323; Mul 1028 8 1408; Mul 1174 130 1037; Sub 1028 1028 1174; Mul 1174 137 1470; Mul 1521 9 1531;
  Add 1174 1174 1521; Sub 1028 1028 1174; Mul 1392 111 1392; Mul 1174 96 1485; Add 1392 1392 1174;
  Add 1028 1028 1392; Mul 1392 141 1048; Mul 1392 124 1392; Mul 1053 146 1053; Add 1392 1392 1053;
  Sub 1028 1028 1392; Mul 1028 113 1028; Add 1683 1683 1028; Sub 1307 1307 1683; Mul 1683 1073 1307;
  Add 1024 1024 1683; Mul 1683 150 1323; Mul 1028 149 1470; Mul 1392 148 1485; Mul 1053 147 1020;
  Mul 1174 109 1053; Sub 1392 1392 1174; Add 1531 1531 1392; Mul 1392 9 1531; Add 1028 1028 1392;
  Mul 1485 151 1485; Mul 1392 147 1158; Mul 1174 109 1392; Add 1485 1485 1174; Add 1408 1408 1485;
  Mul 1485 8 1408; Mul 1174 152 1037; Sub 1485 1485 1174; Sub 1028 1028 1485; Mul 1485 148 1470;
  Mul 1174 9 1053; Sub 1485 1485 1174; Mul 1174 8 1392; Mul 1521 151 1037; Sub 1174 1174 1521;
  Sub 1485 1485 1174; Mul 1174 108 1485; Add 1028 1028 1174; Mul 1028 113 1028; Add 1683 1683 1028;
  Mul 1028 152 1470; Mul 1408 9 1408; Add 1028 1028 1408; Mul 1531 8 1531; Mul 1408 149 1037;
  Sub 1531 1531 1408; Add 1028 1028 1531].
Definition casadi_f0_353 : list instruction := [
  Mul 1531 151 1470; Mul 1408 9 1392; Add 1531 1531 1408; Mul 1408 148 1037; Mul 1174 8 1053;
  Add 1408 1408 1174; Sub 1531 1531 1408; Mul 1531 108 1531; Add 1028 1028 1531; Mul 1028 114 1028;
  Mul 1531 155 1198; Sub 1028 1028 1531; Add 1683 1683 1028; Mul 1028 1050 1683; Add 1024 1024 1028;
  Mul 1028 159 1470; Mul 1531 156 1077; Mul 1531 82 1531; Mul 1408 157 1508; Add 1531 1531 1408;
  Sub 1578 1578 1531; Mul 1531 66 1578; Mul 1408 158 1685; Sub 1531 1531 1408; Mul 1408 161 1426;
  Mul 1508 156 1508; Mul 1508 87 1508; Mul 1174 160 1568; Sub 1508 1508 1174; Sub 1186 1186 1508;
  Mul 1508 53 1186; Add 1408 1408 1508; Add 1531 1531 1408; Mul 1408 9 1531; Add 1028 1028 1408;
  Mul 1186 66 1186; Mul 1408 161 1685; Sub 1186 1186 1408; Mul 1408 158 1426; Mul 1578 53 1578;
  Add 1408 1408 1578; Sub 1186 1186 1408; Mul 1408 8 1186; Mul 1578 163 1037; Sub 1408 1408 1578;
  Add 1028 1028 1408; Mul 1408 167 1426; Mul 1578 166 1077; Mul 1508 53 1578; Add 1408 1408 1508;
  Mul 1508 164 1685; Mul 1174 156 1568; Mul 1521 66 1174; Add 1508 1508 1521; Sub 1408 1408 1508;
  Mul 1508 8 1408; Mul 1521 165 1037; Sub 1508 1508 1521; Mul 1521 169 1470; Mul 1578 66 1578;
  Mul 1035 167 1685; Sub 1578 1578 1035; Mul 1035 164 1426; Mul 1174 53 1174; Sub 1035 1035 1174;
  Sub 1578 1578 1035; Mul 1035 9 1578; Add 1521 1521 1035; Sub 1508 1508 1521; Mul 1508 108 1508;
  Sub 1028 1028 1508; Mul 1028 114 1028; Mul 1508 162 1198; Sub 1028 1028 1508; Mul 1508 170 1323;
  Mul 1531 8 1531; Mul 1521 159 1037; Sub 1531 1531 1521; Mul 1521 163 1470; Mul 1186 9 1186;
  Add 1521 1521 1186; Sub 1531 1531 1521; Mul 1521 165 1470; Mul 1186 9 1408; Add 1521 1521 1186;
  Mul 1186 8 1578; Mul 1035 169 1037; Sub 1186 1186 1035; Add 1521 1521 1186; Mul 1186 108 1521;
  Add 1531 1531 1186; Mul 1531 113 1531; Add 1508 1508 1531; Sub 1028 1028 1508; Mul 1508 1070 1028;
  Add 1024 1024 1508; Mul 1508 179 1470; Mul 1531 177 1426; Mul 1186 174 1490; Mul 1490 173 1490;
  Mul 1035 49 1490; Add 1186 1186 1035; Add 1186 1186 1148; Mul 1035 174 1165; Mul 1174 35 1490;
  Add 1035 1035 1174; Mul 1174 176 1083; Sub 1035 1035 1174; Mul 1174 62 1035; Mul 1136 176 1165;
  Mul 1678 19 1490; Mul 1385 174 1083; Sub 1678 1678 1385; Sub 1136 1136 1678; Mul 1678 48 1136;
  Sub 1174 1174 1678; Add 1174 1186 1174; Mul 1678 53 1174; Add 1531 1531 1678; Mul 1678 176 1117;
  Sub 1265 1265 1678; Mul 1678 19 1265; Mul 1385 180 1083; Sub 1678 1678 1385; Mul 1385 182 1165;
  Mul 1490 56 1490; Mul 1117 174 1117; Sub 1490 1490 1117; Sub 1490 1490 1524; Mul 1524 35 1490;
  Add 1385 1385 1524; Add 1678 1678 1385; Mul 1385 55 1035; Add 1678 1678 1385; Mul 1385 66 1678;
  Mul 1524 181 1685; Sub 1385 1385 1524; Sub 1531 1531 1385; Mul 1385 86 1035; Sub 1531 1531 1385;
  Mul 1385 9 1531; Add 1508 1508 1385; Mul 1385 181 1426; Mul 1678 53 1678; Add 1385 1385 1678;
  Mul 1174 66 1174; Mul 1678 177 1685; Sub 1174 1174 1678; Add 1385 1385 1174].
Definition casadi_f0_354 : list instruction := [
  Mul 1174 91 1035; Add 1385 1385 1174; Mul 1174 8 1385; Mul 1678 184 1037; Sub 1174 1174 1678;
  Add 1508 1508 1174; Mul 1035 102 1035; Mul 1174 66 1136; Mul 1678 178 1685; Sub 1174 1174 1678;
  Mul 1678 8 1174; Mul 1524 185 1037; Sub 1678 1678 1524; Mul 1524 187 1470; Mul 1117 178 1426;
  Mul 1074 53 1136; Add 1117 1117 1074; Mul 1074 9 1117; Add 1524 1524 1074; Add 1678 1678 1524;
  Mul 1678 108 1678; Sub 1035 1035 1678; Add 1508 1508 1035; Mul 1508 114 1508; Mul 1035 183 1198;
  Sub 1508 1508 1035; Mul 1035 186 1323; Mul 1531 8 1531; Mul 1678 179 1037; Sub 1531 1531 1678;
  Mul 1678 184 1470; Mul 1385 9 1385; Add 1678 1678 1385; Sub 1531 1531 1678; Mul 1678 185 1470;
  Mul 1385 9 1174; Add 1678 1678 1385; Mul 1385 8 1117; Mul 1524 187 1037; Sub 1385 1385 1524;
  Sub 1678 1678 1385; Mul 1385 108 1678; Add 1531 1531 1385; Mul 1531 113 1531; Add 1035 1035 1531;
  Sub 1508 1508 1035; Mul 1035 1059 1508; Add 1024 1024 1035; Mul 1035 199 1470; Mul 1531 196 1165;
  Mul 1385 197 1429; Mul 1524 195 1632; Sub 1385 1385 1524; Mul 1524 190 1632; Mul 1074 192 1429;
  Add 1524 1524 1074; Mul 1074 198 1524; Add 1385 1385 1074; Mul 1074 35 1385; Add 1531 1531 1074;
  Mul 1074 189 1083; Mul 1612 25 1524; Mul 1349 190 1429; Mul 1217 192 1632; Sub 1349 1349 1217;
  Mul 1217 32 1349; Add 1612 1612 1217; Mul 1217 19 1612; Add 1074 1074 1217; Sub 1531 1531 1074;
  Mul 1074 48 1524; Mul 1217 19 1349; Mul 1290 194 1083; Sub 1217 1217 1290; Mul 1290 55 1217;
  Add 1074 1074 1290; Sub 1531 1531 1074; Mul 1074 66 1531; Mul 1290 193 1685; Sub 1074 1074 1290;
  Mul 1290 202 1426; Mul 1135 198 1349; Mul 1656 197 1632; Mul 1594 195 1429; Add 1656 1656 1594;
  Sub 1135 1135 1656; Mul 1656 62 1217; Mul 1594 194 1165; Mul 1349 35 1349; Add 1594 1594 1349;
  Mul 1349 48 1594; Sub 1656 1656 1349; Add 1656 1135 1656; Mul 1349 53 1656; Add 1290 1290 1349;
  Add 1074 1074 1290; Mul 1290 86 1217; Sub 1074 1074 1290; Mul 1290 9 1074; Add 1035 1035 1290;
  Mul 1656 66 1656; Mul 1290 202 1685; Sub 1656 1656 1290; Mul 1290 193 1426; Mul 1531 53 1531;
  Add 1290 1290 1531; Sub 1656 1656 1290; Mul 1290 91 1217; Add 1656 1656 1290; Mul 1290 8 1656;
  Mul 1531 205 1037; Sub 1290 1290 1531; Add 1035 1035 1290; Mul 1217 102 1217; Mul 1290 66 1594;
  Mul 1531 203 1685; Sub 1290 1290 1531; Mul 1531 191 1426; Mul 1349 53 1524; Sub 1531 1531 1349;
  Add 1290 1290 1531; Mul 1531 8 1290; Mul 1349 206 1037; Sub 1531 1531 1349; Mul 1349 208 1470;
  Mul 1498 191 1685; Mul 1415 66 1524; Add 1498 1498 1415; Mul 1415 203 1426; Mul 1673 53 1594;
  Add 1415 1415 1673; Add 1498 1498 1415; Mul 1415 9 1498; Sub 1349 1349 1415; Sub 1531 1531 1349;
  Mul 1531 108 1531; Sub 1217 1217 1531; Add 1035 1035 1217; Mul 1035 114 1035; Mul 1217 204 1198;
  Sub 1035 1035 1217; Mul 1217 207 1323; Mul 1074 8 1074; Mul 1531 199 1037; Sub 1074 1074 1531;
  Mul 1531 205 1470; Mul 1656 9 1656; Add 1531 1531 1656; Sub 1074 1074 1531].
Definition casadi_f0_355 : list instruction := [
  Mul 1531 206 1470; Mul 1656 9 1290; Add 1531 1531 1656; Mul 1656 208 1037; Mul 1349 8 1498;
  Add 1656 1656 1349; Sub 1531 1531 1656; Mul 1656 108 1531; Add 1074 1074 1656; Mul 1074 113 1074;
  Add 1217 1217 1074; Sub 1035 1035 1217; Mul 1217 1043 1035; Add 1024 1024 1217; Div 1024 1024 1085;
  Mul 1217 1072 1024; Sub 1159 1159 1217; Mul 1217 211 1159; Mul 1074 216 1323; Arg 1656 1 72;
  Mul 1349 215 1656; Mul 1415 113 1349; Sub 1074 1074 1415; Mul 1415 218 1074; Mul 1673 114 1657;
  Mul 1660 0 1198; Sub 1673 1673 1660; Mul 1660 217 1673; Add 1415 1415 1660; Mul 1656 216 1656;
  Mul 1660 1 1656; Mul 1603 215 1505; Add 1660 1660 1603; Sub 1415 1415 1660; Mul 1660 0 1323;
  Mul 1603 113 1657; Add 1660 1660 1603; Mul 1603 220 1660; Mul 1670 114 1349; Mul 1343 216 1198;
  Add 1670 1670 1343; Mul 1343 221 1670; Sub 1603 1603 1343; Sub 1415 1415 1603; Mul 1603 214 1415;
  Mul 1343 213 1603; Mul 1343 212 1343; Mul 1026 225 1343; Mul 1423 114 1656; Mul 1412 215 1198;
  Sub 1423 1423 1412; Mul 1412 101 1423; Mul 1482 107 1349; Sub 1412 1412 1482; Mul 1482 223 1412;
  Add 1344 1026 1482; Mul 1142 216 1505; Mul 1285 1 1349; Sub 1142 1142 1285; Mul 1285 113 1656;
  Mul 1254 215 1323; Add 1285 1285 1254; Mul 1254 218 1285; Mul 1604 228 1673; Add 1254 1254 1604;
  Add 1142 1142 1254; Mul 1254 221 1423; Mul 1604 224 1660; Add 1254 1254 1604; Sub 1142 1142 1254;
  Mul 1254 214 1142; Mul 1604 213 1254; Mul 1604 212 1604; Mul 1526 231 1604; Mul 1147 101 1670;
  Mul 1452 107 1656; Add 1147 1147 1452; Mul 1452 230 1147; Sub 1526 1526 1452; Sub 1452 1344 1526;
  Add 1482 1482 1026; Sub 1526 1482 1526; Add 1026 1452 1526; Mul 1539 144 1323; Mul 1665 215 1539;
  Mul 1417 240 1656; Add 1665 1665 1417; Mul 1417 236 1198; Mul 1250 238 1323; Add 1417 1417 1250;
  Mul 1250 220 1417; Mul 1576 237 1670; Add 1250 1250 1576; Sub 1665 1665 1250; Mul 1250 115 1349;
  Add 1665 1665 1250; Mul 1250 212 1147; Mul 1576 242 1250; Mul 1268 101 1323; Mul 1276 241 1268;
  Add 1576 1576 1276; Add 1576 1665 1576; Mul 1276 244 1576; Mul 1695 213 1142; Mul 1652 243 1695;
  Add 1427 1276 1652; Mul 1339 237 1423; Mul 1338 224 1417; Sub 1339 1339 1338; Mul 1539 216 1539;
  Mul 1338 240 1349; Sub 1539 1539 1338; Sub 1339 1339 1539; Mul 1539 115 1656; Sub 1339 1339 1539;
  Mul 1539 212 1412; Mul 1539 242 1539; Mul 1338 247 1268; Sub 1539 1539 1338; Sub 1539 1339 1539;
  Mul 1338 249 1539; Mul 1042 213 1415; Mul 1561 248 1042; Add 1352 1338 1561; Sub 1700 1427 1352;
  Sub 1026 1026 1700; Add 1561 1561 1338; Add 1652 1652 1276; Sub 1276 1561 1652; Add 1026 1026 1276;
  Mul 1276 9 1074; Mul 1338 217 1470; Add 1276 1276 1338; Mul 1338 8 1670; Mul 1700 220 1037;
  Add 1338 1338 1700; Sub 1276 1276 1338; Mul 1338 254 1276; Mul 1700 218 1470; Mul 1584 9 1673;
  Add 1700 1700 1584; Mul 1584 8 1660; Mul 1439 221 1037; Sub 1584 1584 1439; Sub 1700 1700 1584;
  Mul 1584 253 1700; Add 1338 1338 1584; Mul 1074 8 1074; Mul 1584 217 1037].
Definition casadi_f0_356 : list instruction := [
  Sub 1074 1074 1584; Mul 1584 220 1470; Mul 1439 9 1670; Sub 1584 1584 1439; Sub 1074 1074 1584;
  Mul 1584 257 1074; Mul 1439 221 1470; Mul 1690 9 1660; Add 1439 1439 1690; Mul 1690 8 1673; Mul 1487 218 1037;
  Sub 1690 1690 1487; Add 1439 1439 1690; Mul 1690 256 1439; Add 1584 1584 1690; Mul 1690 259 1656;
  Sub 1487 1505 1110; Mul 1484 215 1487; Add 1690 1690 1484; Sub 1584 1584 1690; Add 1338 1338 1584;
  Mul 1584 213 1338; Mul 1690 276 1584; Mul 1484 114 1470; Mul 1208 9 1198; Sub 1484 1484 1208; Mul 1208 8 1323;
  Mul 1289 113 1037; Sub 1208 1208 1289; Sub 1484 1484 1208; Mul 1208 260 1484; Mul 1289 9 1323;
  Mul 1617 113 1470; Add 1289 1289 1617; Mul 1617 8 1198; Mul 1688 114 1037; Add 1617 1617 1688;
  Sub 1289 1289 1617; Mul 1617 263 1289; Add 1208 1208 1617; Mul 1617 265 1208; Mul 1688 8 1423;
  Mul 1097 224 1037; Sub 1688 1688 1097; Mul 1097 9 1285; Mul 1121 228 1470; Add 1097 1097 1121;
  Add 1688 1688 1097; Mul 1097 262 1688; Add 1617 1617 1097; Mul 1097 127 1484; Mul 1121 268 1289;
  Add 1097 1097 1121; Mul 1121 216 1097; Mul 1389 267 1349; Sub 1121 1121 1389; Add 1617 1617 1121;
  Mul 1121 135 1276; Mul 1389 95 1656; Add 1121 1121 1389; Sub 1617 1617 1121; Mul 1121 102 1423;
  Mul 1389 108 1349; Sub 1121 1121 1389; Mul 1389 79 1688; Mul 1646 8 1285; Mul 1515 228 1037;
  Sub 1646 1646 1515; Mul 1515 9 1423; Mul 1631 224 1470; Add 1515 1515 1631; Sub 1646 1646 1515;
  Mul 1515 85 1646; Mul 1631 81 1349; Sub 1515 1515 1631; Add 1389 1389 1515; Add 1389 1121 1389;
  Mul 1515 269 1389; Mul 1515 275 1515; Mul 1631 79 1484; Mul 1401 85 1289; Add 1631 1631 1401;
  Mul 1401 102 1323; Sub 1631 1631 1401; Mul 1474 272 1631; Add 1515 1515 1474; Sub 1515 1617 1515;
  Mul 1474 258 1515; Add 1362 1690 1474; Mul 1573 254 1688; Mul 1079 265 1700; Add 1573 1573 1079;
  Mul 1079 216 1487; Mul 1301 259 1349; Sub 1079 1079 1301; Mul 1301 257 1646; Mul 1450 273 1439;
  Add 1301 1301 1450; Add 1079 1079 1301; Add 1573 1573 1079; Mul 1079 213 1573; Mul 1301 284 1079;
  Mul 1450 253 1208; Mul 1163 262 1276; Add 1450 1450 1163; Mul 1097 215 1097; Mul 1163 267 1656;
  Add 1097 1097 1163; Sub 1450 1450 1097; Mul 1097 95 1349; Mul 1163 135 1688; Add 1097 1097 1163;
  Add 1450 1450 1097; Mul 1097 79 1276; Mul 1163 85 1074; Mul 1431 81 1656; Sub 1163 1163 1431;
  Add 1097 1097 1163; Mul 1163 102 1670; Mul 1431 108 1656; Add 1163 1163 1431; Sub 1097 1097 1163;
  Mul 1431 269 1097; Mul 1283 275 1431; Mul 1092 283 1631; Add 1283 1283 1092; Sub 1283 1450 1283;
  Mul 1092 279 1283; Add 1564 1301 1092; Sub 1374 1362 1564; Mul 1406 292 1631; Mul 1258 288 1289;
  Mul 1219 287 1470; Mul 1481 108 1673; Mul 1641 9 1481; Add 1219 1219 1641; Mul 1641 102 1505;
  Mul 1384 108 1660; Add 1641 1641 1384; Mul 1384 8 1641; Mul 1475 289 1037; Sub 1384 1384 1475;
  Sub 1219 1219 1384; Mul 1384 264 1219; Add 1258 1258 1384; Mul 1384 291 1484; Mul 1481 8 1481;
  Mul 1475 287 1037; Sub 1481 1481 1475].
Definition casadi_f0_357 : list instruction := [
  Mul 1475 289 1470; Mul 1641 9 1641; Add 1475 1475 1641; Add 1481 1481 1475; Mul 1475 261 1481;
  Add 1384 1384 1475; Sub 1258 1258 1384; Mul 1384 281 1573; Mul 1475 278 1163; Sub 1384 1384 1475;
  Mul 1475 255 1121; Mul 1641 270 1338; Add 1475 1475 1641; Sub 1384 1384 1475; Add 1258 1258 1384;
  Mul 1384 213 1258; Mul 1384 269 1384; Mul 1475 275 1384; Add 1641 1406 1475; Mul 1611 288 1074;
  Mul 1645 256 1219; Add 1611 1611 1645; Mul 1645 295 1656; Mul 1143 102 1673; Mul 1345 215 1143;
  Add 1645 1645 1345; Sub 1611 1611 1645; Mul 1645 291 1276; Mul 1345 253 1481; Add 1645 1645 1345;
  Sub 1611 1611 1645; Mul 1645 296 1121; Mul 1345 254 1484; Mul 1122 261 1700; Add 1345 1345 1122;
  Mul 1122 257 1289; Mul 1686 264 1439; Add 1122 1122 1686; Add 1345 1345 1122; Mul 1122 270 1345;
  Add 1645 1645 1122; Mul 1122 274 1573; Mul 1686 278 1401; Sub 1122 1122 1686; Sub 1645 1645 1122;
  Add 1611 1611 1645; Mul 1645 213 1611; Mul 1645 269 1645; Mul 1122 282 1645; Mul 1686 297 1097;
  Add 1284 1122 1686; Mul 1231 216 1143; Mul 1055 295 1349; Sub 1231 1231 1055; Mul 1055 288 1646;
  Mul 1210 273 1219; Add 1055 1055 1210; Add 1231 1231 1055; Mul 1055 291 1688; Mul 1210 265 1481;
  Add 1055 1055 1210; Sub 1231 1231 1055; Mul 1055 274 1338; Mul 1210 255 1401; Sub 1055 1055 1210;
  Mul 1210 281 1345; Mul 1128 296 1163; Sub 1210 1210 1128; Sub 1055 1055 1210; Add 1231 1231 1055;
  Mul 1055 213 1231; Mul 1055 269 1055; Mul 1210 271 1055; Mul 1128 300 1389; Add 1109 1210 1128;
  Add 1475 1475 1406; Add 1406 1109 1475; Add 1284 1284 1406; Sub 1175 1641 1284; Add 1686 1686 1122;
  Add 1128 1128 1210; Add 1641 1128 1641; Add 1686 1686 1641; Sub 1475 1475 1686; Add 1175 1175 1475;
  Add 1092 1092 1301; Add 1474 1474 1690; Sub 1690 1092 1474; Add 1175 1175 1690; Sub 1374 1374 1175;
  Mul 1175 66 1276; Mul 1690 253 1685; Sub 1175 1175 1690; Mul 1690 53 1074; Mul 1301 256 1426;
  Add 1690 1690 1301; Sub 1175 1175 1690; Mul 1690 308 1175; Mul 1301 66 1700; Mul 1475 254 1685;
  Sub 1301 1301 1475; Mul 1475 257 1426; Mul 1210 53 1439; Add 1475 1475 1210; Sub 1301 1301 1475;
  Mul 1475 304 1301; Add 1690 1690 1475; Mul 1475 53 1276; Mul 1210 253 1426; Add 1475 1475 1210;
  Mul 1210 66 1074; Mul 1122 256 1685; Sub 1210 1210 1122; Add 1475 1475 1210; Mul 1210 311 1475;
  Mul 1122 254 1426; Mul 1550 53 1700; Add 1122 1122 1550; Mul 1550 66 1439; Mul 1149 257 1685;
  Sub 1550 1550 1149; Add 1122 1122 1550; Mul 1550 310 1122; Add 1210 1210 1550; Mul 1550 313 1656;
  Add 1149 1207 1487; Mul 1230 215 1149; Add 1550 1550 1230; Sub 1210 1210 1550; Add 1690 1690 1210;
  Mul 1210 213 1690; Mul 1550 330 1210; Mul 1230 66 1484; Mul 1340 261 1685; Sub 1230 1230 1340;
  Mul 1340 53 1289; Mul 1096 264 1426; Add 1340 1340 1096; Sub 1230 1230 1340; Mul 1340 314 1230;
  Mul 1096 53 1484; Mul 1398 261 1426; Add 1096 1096 1398; Mul 1398 66 1289; Mul 1536 264 1685;
  Sub 1398 1398 1536; Add 1096 1096 1398; Mul 1398 317 1096; Add 1340 1340 1398].
Definition casadi_f0_358 : list instruction := [
  Mul 1398 319 1340; Mul 1536 66 1688; Mul 1093 265 1685; Sub 1536 1536 1093; Mul 1093 53 1646;
  Mul 1511 273 1426; Add 1093 1093 1511; Sub 1536 1536 1093; Mul 1093 316 1536; Add 1398 1398 1093;
  Mul 1093 128 1230; Mul 1511 322 1096; Add 1093 1093 1511; Mul 1511 216 1093; Mul 1677 321 1349;
  Sub 1511 1511 1677; Add 1398 1398 1511; Mul 1511 131 1175; Mul 1677 68 1656; Add 1511 1511 1677;
  Sub 1398 1398 1511; Mul 1511 91 1688; Mul 1677 86 1646; Add 1511 1511 1677; Add 1511 1121 1511;
  Mul 1677 61 1536; Mul 1571 53 1688; Mul 1495 265 1426; Add 1571 1571 1495; Mul 1495 66 1646;
  Mul 1310 273 1685; Sub 1495 1495 1310; Add 1571 1571 1495; Mul 1495 54 1571; Mul 1310 47 1349;
  Sub 1495 1495 1310; Add 1677 1677 1495; Add 1677 1511 1677; Mul 1495 323 1677; Mul 1495 329 1495;
  Mul 1310 91 1484; Mul 1289 86 1289; Add 1310 1310 1289; Sub 1310 1310 1401; Mul 1289 61 1230;
  Mul 1368 54 1096; Add 1289 1289 1368; Add 1289 1310 1289; Mul 1368 326 1289; Add 1495 1495 1368;
  Sub 1495 1398 1495; Mul 1368 312 1495; Add 1625 1550 1368; Mul 1507 308 1536; Mul 1318 319 1301;
  Add 1507 1507 1318; Mul 1318 216 1149; Mul 1182 313 1349; Sub 1318 1318 1182; Mul 1182 311 1571;
  Mul 1335 327 1122; Add 1182 1182 1335; Add 1318 1318 1182; Add 1507 1507 1318; Mul 1318 213 1507;
  Mul 1182 338 1318; Mul 1335 304 1340; Mul 1297 316 1175; Add 1335 1335 1297; Mul 1093 215 1093;
  Mul 1297 321 1656; Add 1093 1093 1297; Sub 1335 1335 1093; Mul 1093 68 1349; Mul 1297 131 1536;
  Add 1093 1093 1297; Add 1335 1335 1093; Mul 1093 91 1276; Mul 1074 86 1074; Add 1093 1093 1074;
  Sub 1093 1093 1163; Mul 1074 61 1175; Mul 1297 54 1475; Mul 1127 47 1656; Sub 1297 1297 1127;
  Add 1074 1074 1297; Add 1074 1093 1074; Mul 1297 323 1074; Mul 1127 329 1297; Mul 1130 337 1289;
  Add 1127 1127 1130; Sub 1127 1335 1127; Mul 1130 333 1127; Add 1388 1182 1130; Sub 1419 1625 1388;
  Mul 1051 346 1289; Mul 1567 342 1230; Mul 1640 86 1487; Sub 1640 1640 1481; Mul 1481 66 1640;
  Mul 1104 341 1685; Sub 1481 1481 1104; Mul 1104 343 1426; Mul 1487 91 1487; Sub 1219 1219 1487;
  Mul 1487 53 1219; Add 1104 1104 1487; Sub 1481 1481 1104; Mul 1104 315 1481; Add 1567 1567 1104;
  Mul 1104 345 1096; Mul 1487 341 1426; Mul 1640 53 1640; Add 1487 1487 1640; Mul 1219 66 1219;
  Mul 1640 343 1685; Sub 1219 1219 1640; Add 1487 1487 1219; Mul 1219 318 1487; Add 1104 1104 1219;
  Add 1567 1567 1104; Mul 1104 332 1093; Mul 1219 335 1507; Add 1104 1104 1219; Mul 1219 309 1511;
  Mul 1640 324 1690; Add 1219 1219 1640; Sub 1104 1104 1219; Add 1567 1567 1104; Mul 1104 213 1567;
  Mul 1104 323 1104; Mul 1219 329 1104; Add 1640 1051 1219; Mul 1242 342 1175; Mul 1682 304 1481;
  Add 1242 1242 1682; Mul 1682 345 1475; Mul 1679 310 1487; Add 1682 1682 1679; Mul 1679 350 1656;
  Mul 1700 86 1700; Mul 1439 91 1439; Sub 1700 1700 1439; Sub 1143 1143 1700; Mul 1700 215 1143;
  Add 1679 1679 1700; Sub 1682 1682 1679; Add 1242 1242 1682; Mul 1682 349 1511].
Definition casadi_f0_359 : list instruction := [
  Mul 1679 308 1230; Mul 1700 315 1301; Add 1679 1679 1700; Mul 1700 311 1096; Mul 1439 318 1122;
  Add 1700 1700 1439; Add 1679 1679 1700; Mul 1700 324 1679; Add 1682 1682 1700; Mul 1700 332 1310;
  Mul 1439 328 1507; Add 1700 1700 1439; Sub 1682 1682 1700; Add 1242 1242 1682; Mul 1682 213 1242;
  Mul 1682 323 1682; Mul 1700 336 1682; Mul 1439 351 1074; Add 1642 1700 1439; Mul 1324 342 1536;
  Mul 1327 319 1481; Add 1324 1324 1327; Mul 1327 216 1143; Mul 1643 350 1349; Sub 1327 1327 1643;
  Mul 1643 345 1571; Mul 1133 327 1487; Add 1643 1643 1133; Add 1327 1327 1643; Add 1324 1324 1327;
  Mul 1327 309 1310; Mul 1643 328 1690; Add 1327 1327 1643; Mul 1643 349 1093; Mul 1133 335 1679;
  Add 1643 1643 1133; Sub 1327 1327 1643; Add 1324 1324 1327; Mul 1327 213 1324; Mul 1327 323 1327;
  Mul 1643 325 1327; Mul 1133 354 1677; Add 1607 1643 1133; Add 1219 1219 1051; Add 1051 1607 1219;
  Add 1642 1642 1051; Sub 1245 1640 1642; Add 1439 1439 1700; Add 1133 1133 1643; Add 1640 1133 1640;
  Add 1439 1439 1640; Sub 1219 1219 1439; Add 1245 1245 1219; Add 1130 1130 1182; Add 1368 1368 1550;
  Sub 1550 1130 1368; Add 1245 1245 1550; Sub 1419 1419 1245; Mul 1245 19 1175; Mul 1550 304 1083;
  Sub 1245 1245 1550; Mul 1550 35 1656; Mul 1182 215 1165; Add 1550 1550 1182; Add 1245 1245 1550;
  Mul 1550 362 1245; Mul 1182 19 1301; Mul 1219 308 1083; Sub 1182 1182 1219; Mul 1219 313 1165;
  Mul 1643 35 1149; Add 1219 1219 1643; Sub 1182 1182 1219; Mul 1219 358 1182; Add 1550 1550 1219;
  Mul 1219 35 1175; Mul 1643 304 1165; Add 1219 1219 1643; Mul 1643 19 1656; Mul 1700 215 1083;
  Sub 1643 1643 1700; Sub 1219 1219 1643; Mul 1643 365 1219; Mul 1700 308 1165; Mul 1315 35 1301;
  Add 1700 1700 1315; Mul 1315 19 1149; Mul 1222 313 1083; Sub 1315 1315 1222; Add 1700 1700 1315;
  Mul 1315 364 1700; Add 1643 1643 1315; Mul 1315 367 1475; Sub 1222 1122 1418; Mul 1466 310 1222;
  Add 1315 1315 1466; Add 1643 1643 1315; Add 1550 1550 1643; Mul 1643 213 1550; Mul 1315 385 1643;
  Mul 1466 19 1230; Mul 1497 315 1083; Sub 1466 1466 1497; Mul 1497 368 1466; Mul 1341 35 1230;
  Mul 1034 315 1165; Add 1341 1341 1034; Mul 1034 39 1341; Mul 1291 373 1096; Add 1034 1034 1291;
  Add 1497 1497 1034; Mul 1034 372 1497; Mul 1291 19 1536; Mul 1402 319 1083; Sub 1291 1291 1402;
  Mul 1402 216 1165; Mul 1261 35 1349; Sub 1402 1402 1261; Sub 1291 1291 1402; Mul 1402 370 1291;
  Add 1034 1034 1402; Mul 1402 39 1466; Mul 1261 376 1341; Add 1402 1402 1261; Mul 1261 377 1402;
  Mul 1593 35 1536; Mul 1237 319 1165; Add 1593 1593 1237; Mul 1237 19 1349; Mul 1351 216 1083;
  Add 1237 1237 1351; Sub 1593 1593 1237; Mul 1237 375 1593; Add 1261 1261 1237; Add 1034 1034 1261;
  Mul 1261 69 1219; Add 1034 1034 1261; Mul 1261 62 1536; Mul 1237 55 1571; Mul 1351 48 1349;
  Sub 1237 1237 1351; Add 1261 1261 1237; Add 1261 1511 1261; Mul 1237 380 1291; Mul 1351 24 1593;
  Mul 1223 31 1571; Add 1351 1351 1223; Add 1237 1237 1351; Add 1237 1261 1237].
Definition casadi_f0_360 : list instruction := [
  Mul 1351 378 1237; Mul 1351 384 1351; Mul 1223 62 1230; Mul 1372 55 1096; Add 1223 1223 1372;
  Add 1223 1310 1223; Mul 1372 380 1466; Mul 1409 24 1341; Mul 1131 31 1096; Add 1409 1409 1131;
  Add 1372 1372 1409; Add 1372 1223 1372; Mul 1409 382 1372; Add 1351 1351 1409; Sub 1351 1034 1351;
  Mul 1409 366 1351; Add 1131 1315 1409; Mul 1156 362 1291; Mul 1551 372 1182; Add 1156 1156 1551;
  Mul 1551 365 1593; Mul 1473 377 1700; Add 1551 1551 1473; Mul 1473 367 1571; Mul 1319 327 1222;
  Add 1473 1473 1319; Add 1551 1551 1473; Add 1156 1156 1551; Mul 1551 213 1156; Mul 1473 393 1551;
  Mul 1319 358 1497; Mul 1303 370 1245; Add 1319 1319 1303; Mul 1303 364 1402; Mul 1586 375 1219;
  Add 1303 1303 1586; Add 1319 1319 1303; Mul 1303 69 1593; Sub 1319 1319 1303; Mul 1303 62 1175;
  Mul 1586 55 1475; Mul 1424 48 1656; Sub 1586 1586 1424; Add 1303 1303 1586; Add 1303 1093 1303;
  Mul 1586 380 1245; Mul 1424 24 1219; Mul 1581 31 1475; Add 1424 1424 1581; Add 1586 1586 1424;
  Add 1586 1303 1586; Mul 1424 378 1586; Mul 1581 384 1424; Mul 1492 392 1372; Add 1581 1581 1492;
  Sub 1581 1319 1581; Mul 1492 388 1581; Add 1274 1473 1492; Sub 1457 1131 1274; Mul 1387 401 1372;
  Mul 1697 397 1466; Mul 1461 48 1122; Mul 1151 55 1149; Sub 1461 1461 1151; Sub 1481 1481 1461;
  Mul 1461 19 1481; Mul 1151 396 1083; Sub 1461 1461 1151; Mul 1151 398 1165; Mul 1134 55 1301;
  Mul 1122 62 1122; Sub 1134 1134 1122; Sub 1143 1143 1134; Mul 1134 35 1143; Add 1151 1151 1134;
  Sub 1461 1461 1151; Mul 1151 369 1461; Add 1697 1697 1151; Mul 1151 400 1341; Mul 1134 396 1165;
  Mul 1481 35 1481; Add 1134 1134 1481; Mul 1143 19 1143; Mul 1481 398 1083; Sub 1143 1143 1481;
  Add 1134 1134 1143; Mul 1143 371 1134; Add 1151 1151 1143; Mul 1143 402 1096; Mul 1149 62 1149;
  Mul 1301 48 1301; Sub 1149 1149 1301; Sub 1487 1487 1149; Mul 1149 318 1487; Add 1143 1143 1149;
  Add 1151 1151 1143; Add 1697 1697 1151; Mul 1151 387 1303; Mul 1143 390 1156; Add 1151 1151 1143;
  Mul 1143 363 1261; Mul 1149 379 1550; Add 1143 1143 1149; Sub 1151 1151 1143; Add 1697 1697 1151;
  Mul 1151 213 1697; Mul 1151 378 1151; Mul 1143 384 1151; Add 1149 1387 1143; Mul 1301 397 1245;
  Mul 1481 358 1461; Add 1301 1301 1481; Mul 1481 400 1219; Mul 1122 364 1134; Add 1481 1481 1122;
  Mul 1122 402 1475; Mul 1360 310 1487; Add 1122 1122 1360; Add 1481 1481 1122; Add 1301 1301 1481;
  Mul 1481 405 1261; Mul 1122 362 1466; Mul 1360 369 1182; Add 1122 1122 1360; Mul 1360 365 1341;
  Mul 1691 371 1700; Add 1360 1360 1691; Mul 1691 367 1096; Mul 1325 318 1222; Add 1691 1691 1325;
  Add 1360 1360 1691; Add 1122 1122 1360; Mul 1360 379 1122; Add 1481 1481 1360; Mul 1360 387 1223;
  Mul 1691 383 1156; Add 1360 1360 1691; Sub 1481 1481 1360; Add 1301 1301 1481; Mul 1481 213 1301;
  Mul 1481 378 1481; Mul 1360 391 1481; Mul 1691 406 1586; Add 1325 1360 1691; Mul 1309 397 1291;
  Mul 1635 372 1461; Add 1309 1309 1635; Mul 1635 400 1593; Mul 1298 377 1134].
Definition casadi_f0_361 : list instruction := [
  Add 1635 1635 1298; Mul 1298 402 1571; Mul 1271 327 1487; Add 1298 1298 1271; Add 1635 1635 1298;
  Add 1309 1309 1635; Mul 1635 363 1223; Mul 1298 383 1550; Add 1635 1635 1298; Mul 1298 405 1303;
  Mul 1271 390 1122; Add 1298 1298 1271; Sub 1635 1635 1298; Add 1309 1309 1635; Mul 1635 213 1309;
  Mul 1635 378 1635; Mul 1298 381 1635; Mul 1271 409 1237; Add 1563 1298 1271; Add 1143 1143 1387;
  Add 1387 1563 1143; Add 1325 1325 1387; Sub 1196 1149 1325; Add 1691 1691 1360; Add 1271 1271 1298;
  Add 1149 1271 1149; Add 1691 1691 1149; Sub 1143 1143 1691; Add 1196 1196 1143; Add 1492 1492 1473;
  Add 1409 1409 1315; Sub 1315 1492 1409; Add 1196 1196 1315; Sub 1457 1457 1196; Mul 1196 413 1245;
  Sub 1315 1182 1676; Mul 1473 358 1315; Add 1196 1196 1473; Mul 1473 16 1219; Mul 1143 364 1632;
  Sub 1473 1473 1143; Mul 1143 15 1475; Mul 1298 310 1429; Add 1143 1143 1298; Sub 1473 1473 1143;
  Mul 1143 419 1473; Mul 1298 16 1700; Mul 1360 365 1632; Sub 1298 1298 1360; Mul 1360 367 1429;
  Mul 1654 15 1222; Add 1360 1360 1654; Sub 1298 1298 1360; Mul 1360 418 1298; Add 1143 1143 1360;
  Mul 1360 15 1219; Mul 1654 364 1429; Add 1360 1360 1654; Mul 1654 16 1475; Mul 1605 310 1632;
  Sub 1654 1654 1605; Add 1360 1360 1654; Mul 1654 422 1360; Mul 1605 365 1429; Mul 1084 15 1700;
  Add 1605 1605 1084; Mul 1084 16 1222; Mul 1503 367 1632; Sub 1084 1084 1503; Add 1605 1605 1084;
  Mul 1084 421 1605; Add 1654 1654 1084; Add 1143 1143 1654; Add 1196 1196 1143; Mul 1143 213 1196;
  Mul 1654 439 1143; Mul 1084 423 1466; Mul 1503 16 1341; Mul 1557 371 1632; Sub 1503 1503 1557;
  Mul 1557 15 1096; Mul 1541 318 1429; Add 1557 1557 1541; Sub 1503 1503 1557; Mul 1557 40 1503;
  Mul 1541 15 1341; Mul 1118 371 1429; Add 1541 1541 1118; Mul 1118 16 1096; Mul 1633 318 1632;
  Sub 1118 1118 1633; Add 1541 1541 1118; Mul 1118 42 1541; Add 1557 1557 1118; Add 1084 1084 1557;
  Mul 1557 372 1084; Mul 1118 424 1291; Add 1557 1557 1118; Mul 1118 40 1466; Mul 1633 14 1503;
  Mul 1382 18 1541; Add 1633 1633 1382; Add 1118 1118 1633; Mul 1633 429 1118; Mul 1382 16 1593;
  Mul 1499 377 1632; Sub 1382 1382 1499; Mul 1499 15 1571; Mul 1469 327 1429; Add 1499 1499 1469;
  Sub 1382 1382 1499; Mul 1499 428 1382; Add 1633 1633 1499; Add 1557 1557 1633; Mul 1633 43 1473;
  Mul 1499 431 1245; Sub 1633 1633 1499; Add 1557 1557 1633; Mul 1633 198 1291; Mul 1499 25 1593;
  Mul 1469 32 1571; Add 1499 1499 1469; Add 1633 1633 1499; Add 1633 1261 1633; Mul 1499 433 1291;
  Mul 1469 26 1382; Mul 1618 15 1593; Mul 1170 377 1429; Add 1618 1618 1170; Mul 1170 16 1571;
  Mul 1358 327 1632; Sub 1170 1170 1358; Add 1618 1618 1170; Mul 1170 28 1618; Add 1469 1469 1170;
  Add 1499 1499 1469; Add 1499 1633 1499; Mul 1469 430 1499; Mul 1469 438 1469; Mul 1170 198 1466;
  Mul 1358 25 1341; Mul 1383 32 1096; Add 1358 1358 1383; Add 1170 1170 1358; Add 1170 1223 1170;
  Mul 1358 433 1466; Mul 1383 26 1503; Mul 1440 28 1541; Add 1383 1383 1440].
Definition casadi_f0_362 : list instruction := [
  Add 1358 1358 1383; Add 1358 1170 1358; Mul 1383 435 1358; Add 1469 1469 1383; Sub 1469 1557 1469;
  Mul 1383 420 1469; Add 1440 1654 1383; Mul 1032 413 1291; Mul 1523 372 1315; Add 1032 1032 1523;
  Mul 1523 419 1382; Mul 1651 429 1298; Add 1523 1523 1651; Mul 1651 422 1618; Mul 1195 436 1605;
  Add 1651 1651 1195; Add 1523 1523 1651; Add 1032 1032 1523; Mul 1523 213 1032; Mul 1651 447 1523;
  Mul 1195 358 1084; Mul 1241 424 1245; Add 1195 1195 1241; Mul 1241 418 1118; Mul 1425 428 1473;
  Add 1241 1241 1425; Add 1195 1195 1241; Mul 1241 43 1382; Mul 1425 431 1291; Sub 1241 1241 1425;
  Sub 1195 1195 1241; Mul 1241 198 1245; Mul 1425 25 1219; Mul 1154 32 1475; Add 1425 1425 1154;
  Add 1241 1241 1425; Add 1241 1303 1241; Mul 1425 433 1245; Mul 1154 26 1473; Mul 1667 28 1360;
  Add 1154 1154 1667; Add 1425 1425 1154; Add 1425 1241 1425; Mul 1154 430 1425; Mul 1667 438 1154;
  Mul 1305 446 1358; Add 1667 1667 1305; Sub 1667 1195 1667; Mul 1305 442 1667; Add 1696 1651 1305;
  Sub 1129 1440 1696; Mul 1019 455 1358; Mul 1506 450 1466; Mul 1369 25 1222; Mul 1554 32 1700;
  Sub 1369 1369 1554; Sub 1461 1461 1369; Mul 1369 369 1461; Add 1506 1506 1369; Mul 1369 453 1503;
  Mul 1554 32 1182; Mul 1222 198 1222; Sub 1554 1554 1222; Sub 1134 1134 1554; Mul 1554 16 1134;
  Mul 1222 452 1632; Sub 1554 1554 1222; Mul 1222 454 1429; Mul 1700 198 1700; Mul 1182 25 1182;
  Sub 1700 1700 1182; Sub 1487 1487 1700; Mul 1700 15 1487; Add 1222 1222 1700; Sub 1554 1554 1222;
  Mul 1222 425 1554; Add 1369 1369 1222; Mul 1222 456 1541; Mul 1700 452 1429; Mul 1134 15 1134;
  Add 1700 1700 1134; Mul 1487 16 1487; Mul 1134 454 1632; Sub 1487 1487 1134; Add 1700 1700 1487;
  Mul 1487 427 1700; Add 1222 1222 1487; Add 1369 1369 1222; Add 1506 1506 1369; Mul 1369 441 1241;
  Mul 1222 444 1032; Add 1369 1369 1222; Mul 1222 417 1633; Mul 1487 432 1196; Add 1222 1222 1487;
  Sub 1369 1369 1222; Add 1506 1506 1369; Mul 1369 213 1506; Mul 1369 430 1369; Mul 1222 438 1369;
  Add 1487 1019 1222; Mul 1134 450 1245; Mul 1182 358 1461; Add 1134 1134 1182; Mul 1182 453 1473;
  Mul 1588 418 1554; Add 1182 1182 1588; Mul 1360 456 1360; Mul 1588 421 1700; Add 1360 1360 1588;
  Add 1182 1182 1360; Add 1134 1134 1182; Mul 1182 459 1633; Mul 1360 413 1466; Mul 1315 369 1315;
  Add 1360 1360 1315; Mul 1315 419 1503; Mul 1298 425 1298; Add 1315 1315 1298; Mul 1541 422 1541;
  Mul 1605 427 1605; Add 1541 1541 1605; Add 1315 1315 1541; Add 1360 1360 1315; Mul 1315 432 1360;
  Add 1182 1182 1315; Mul 1315 441 1170; Mul 1541 437 1032; Add 1315 1315 1541; Sub 1182 1182 1315;
  Add 1134 1134 1182; Mul 1182 213 1134; Mul 1182 430 1182; Mul 1315 445 1182; Mul 1541 460 1425;
  Add 1605 1315 1541; Mul 1298 450 1291; Mul 1461 372 1461; Add 1298 1298 1461; Mul 1461 453 1382;
  Mul 1554 429 1554; Add 1461 1461 1554; Mul 1554 456 1618; Mul 1700 436 1700; Add 1554 1554 1700;
  Add 1461 1461 1554; Add 1298 1298 1461; Mul 1461 417 1170; Mul 1554 437 1196].
Definition casadi_f0_363 : list instruction := [
  Add 1461 1461 1554; Mul 1554 459 1241; Mul 1700 444 1360; Add 1554 1554 1700; Sub 1461 1461 1554;
  Add 1298 1298 1461; Mul 1461 213 1298; Mul 1461 430 1461; Mul 1554 434 1461; Mul 1700 463 1499;
  Add 1588 1554 1700; Add 1222 1222 1019; Add 1019 1588 1222; Add 1605 1605 1019; Sub 1150 1487 1605;
  Add 1541 1541 1315; Add 1700 1700 1554; Add 1487 1700 1487; Add 1541 1541 1487; Sub 1222 1222 1541;
  Add 1150 1150 1222; Add 1305 1305 1651; Add 1383 1383 1654; Sub 1654 1305 1383; Add 1150 1150 1654;
  Sub 1129 1129 1150; Add 1457 1457 1129; Add 1419 1419 1457; Add 1374 1374 1419; Add 1026 1026 1374;
  Mul 1026 0 1026; Mul 1374 235 1657; Add 1026 1026 1374; Mul 1208 261 1208; Mul 1374 262 1484;
  Add 1208 1208 1374; Mul 1340 315 1340; Mul 1374 316 1230; Add 1340 1340 1374; Mul 1497 369 1497;
  Mul 1374 370 1466; Add 1497 1497 1374; Mul 1402 371 1402; Mul 1374 375 1341; Add 1402 1402 1374;
  Add 1497 1497 1402; Mul 1084 369 1084; Mul 1402 424 1466; Add 1084 1084 1402; Mul 1118 425 1118;
  Mul 1402 428 1503; Add 1118 1118 1402; Add 1084 1084 1118; Add 1118 1497 1084; Sub 1402 1586 1425;
  Mul 1374 480 1402; Sub 1419 1237 1499; Mul 1150 1197 1419; Add 1654 1374 1150; Mul 1654 20 1654;
  Add 1118 1118 1654; Add 1654 1340 1118; Mul 1651 485 1586; Mul 1222 50 1425; Add 1651 1651 1222;
  Sub 1222 1074 1651; Mul 1554 487 1222; Mul 1315 485 1237; Mul 1622 50 1499; Add 1315 1315 1622;
  Sub 1622 1677 1315; Mul 1125 1286 1622; Add 1082 1554 1125; Mul 1082 37 1082; Add 1654 1654 1082;
  Add 1082 1208 1654; Mul 1060 493 1074; Mul 1479 83 1651; Add 1060 1060 1479; Sub 1479 1097 1060;
  Mul 1542 495 1479; Mul 1535 493 1677; Mul 1036 83 1315; Add 1535 1535 1036; Sub 1036 1389 1535;
  Mul 1659 1294 1036; Add 1454 1542 1659; Mul 1454 80 1454; Add 1082 1082 1454; Mul 1454 237 1323;
  Mul 1417 113 1417; Sub 1454 1454 1417; Sub 1417 1082 1454; Mul 1089 501 1389; Mul 1590 104 1535;
  Add 1089 1089 1590; Sub 1590 1412 1089; Mul 1017 1299 1590; Mul 1216 501 1097; Mul 1411 104 1060;
  Add 1216 1216 1411; Add 1411 1147 1216; Mul 1672 503 1411; Sub 1512 1017 1672; Mul 1512 100 1512;
  Add 1417 1417 1512; Mul 1417 508 1417; Mul 1512 216 1415; Mul 1350 219 1349; Sub 1512 1512 1350;
  Mul 1350 215 1142; Mul 1259 227 1656; Add 1350 1350 1259; Add 1512 1512 1350; Mul 1350 500 1512;
  Add 1417 1417 1350; Add 1350 1319 1195; Mul 1402 20 1402; Mul 1259 512 1402; Sub 1181 1372 1358;
  Mul 1477 511 1181; Add 1259 1259 1477; Sub 1350 1350 1259; Add 1259 1335 1350; Mul 1222 37 1222;
  Mul 1477 516 1222; Mul 1370 485 1372; Mul 1016 50 1358; Add 1370 1370 1016; Sub 1016 1289 1370;
  Mul 1113 514 1016; Add 1477 1477 1113; Sub 1259 1259 1477; Add 1477 1450 1259; Mul 1479 80 1479;
  Mul 1113 520 1479; Mul 1433 493 1289; Mul 1463 83 1370; Add 1433 1433 1463; Sub 1463 1631 1433;
  Mul 1489 518 1463; Add 1113 1113 1489; Sub 1477 1477 1113; Add 1113 1665 1477; Mul 1411 100 1411;
  Mul 1489 524 1411; Mul 1346 501 1631; Mul 1436 104 1433; Add 1346 1346 1436].
Definition casadi_f0_364 : list instruction := [
  Add 1436 1268 1346; Mul 1493 522 1436; Add 1489 1489 1493; Add 1113 1113 1489; Mul 1489 526 1113;
  Mul 1493 221 1323; Mul 1660 113 1660; Add 1493 1493 1660; Mul 1673 114 1673; Mul 1660 218 1198;
  Sub 1673 1673 1660; Add 1493 1493 1673; Mul 1673 216 1493; Mul 1660 525 1349; Sub 1673 1673 1660;
  Mul 1660 521 1673; Add 1489 1489 1660; Add 1660 1034 1557; Mul 1543 20 1419; Mul 1543 512 1543;
  Mul 1203 529 1181; Add 1543 1543 1203; Sub 1660 1660 1543; Add 1543 1398 1660; Mul 1203 37 1622;
  Mul 1203 516 1203; Mul 1081 531 1016; Add 1203 1203 1081; Sub 1543 1543 1203; Add 1203 1617 1543;
  Mul 1081 80 1036; Mul 1081 520 1081; Mul 1100 533 1463; Add 1081 1081 1100; Sub 1203 1203 1081;
  Add 1081 1339 1203; Mul 1100 100 1590; Mul 1100 524 1100; Mul 1601 535 1436; Sub 1100 1100 1601;
  Sub 1081 1081 1100; Mul 1100 536 1081; Mul 1601 215 1493; Mul 1496 525 1656; Add 1601 1601 1496;
  Mul 1496 534 1601; Add 1100 1100 1496; Add 1489 1489 1100; Sub 1417 1417 1489; Mul 1489 120 1216;
  Mul 1100 527 1147; Sub 1489 1489 1100; Mul 1100 539 1489; Mul 1496 120 1346; Mul 1663 527 1268;
  Sub 1496 1496 1663; Mul 1663 526 1496; Mul 1528 538 1673; Add 1663 1663 1528; Mul 1528 508 1489;
  Mul 1556 537 1512; Add 1528 1528 1556; Add 1663 1663 1528; Mul 1528 540 1493; Mul 1556 214 1349;
  Mul 1532 525 1556; Sub 1528 1528 1532; Sub 1663 1663 1528; Mul 1663 141 1663; Mul 1532 537 1663;
  Add 1100 1100 1532; Mul 1532 527 1412; Mul 1548 120 1089; Add 1532 1532 1548; Mul 1548 546 1532;
  Mul 1453 544 1493; Mul 1621 214 1656; Mul 1021 525 1621; Add 1453 1453 1021; Mul 1021 508 1532;
  Mul 1047 543 1512; Add 1021 1021 1047; Mul 1047 536 1496; Mul 1639 538 1601; Add 1047 1047 1639;
  Add 1021 1021 1047; Sub 1021 1453 1021; Mul 1021 141 1021; Mul 1047 543 1021; Add 1548 1548 1047;
  Sub 1100 1100 1548; Add 1417 1417 1100; Mul 1100 553 1042; Mul 1548 238 1423; Mul 1285 236 1285;
  Mul 1047 144 1349; Sub 1285 1285 1047; Add 1548 1548 1285; Mul 1285 224 1548; Mul 1047 542 1423;
  Add 1285 1285 1047; Mul 1423 144 1423; Mul 1047 549 1349; Sub 1423 1423 1047; Mul 1047 216 1423;
  Mul 1639 548 1349; Sub 1047 1047 1639; Add 1285 1285 1047; Mul 1047 1334 1147; Mul 1639 1336 1268;
  Add 1434 1047 1639; Mul 1434 212 1434; Sub 1434 1285 1434; Mul 1099 249 1434; Add 1572 1100 1099;
  Mul 1579 556 1695; Mul 1548 220 1548; Mul 1670 542 1670; Sub 1548 1548 1670; Mul 1423 215 1423;
  Mul 1670 548 1656; Add 1423 1423 1670; Sub 1548 1548 1423; Mul 1423 241 1412; Mul 1250 225 1250;
  Sub 1423 1423 1250; Sub 1423 1548 1423; Mul 1250 244 1423; Add 1670 1579 1250; Sub 1572 1572 1670;
  Mul 1670 242 1343; Mul 1337 223 1268; Sub 1670 1670 1337; Mul 1337 1342 1412; Sub 1047 1337 1047;
  Mul 1047 212 1047; Sub 1047 1047 1454; Mul 1430 249 1047; Mul 1566 551 1042; Add 1105 1430 1566;
  Mul 1101 560 1576; Mul 1658 213 1493; Mul 1168 243 1658; Add 1600 1101 1168; Sub 1105 1105 1600;
  Add 1105 1670 1105; Sub 1572 1572 1105; Sub 1105 1454 1285; Mul 1600 219 1105].
Definition casadi_f0_365 : list instruction := [
  Mul 1206 557 1415; Add 1600 1600 1206; Mul 1206 227 1548; Mul 1248 555 1142; Add 1206 1206 1248;
  Add 1600 1600 1206; Mul 1206 525 1665; Mul 1248 239 1493; Add 1206 1206 1248; Add 1600 1600 1206;
  Mul 1206 340 1412; Mul 1248 231 1142; Mul 1675 227 1147; Sub 1248 1248 1675; Mul 1675 219 1412;
  Mul 1187 225 1415; Add 1675 1675 1187; Sub 1248 1248 1675; Mul 1248 212 1248; Mul 1675 225 1248;
  Add 1206 1206 1675; Mul 1675 242 1415; Mul 1187 219 1268; Sub 1675 1675 1187; Mul 1187 231 1493;
  Mul 1367 525 1147; Sub 1187 1187 1367; Sub 1675 1675 1187; Sub 1675 1603 1675; Mul 1675 212 1675;
  Mul 1187 242 1675; Mul 1367 559 1268; Sub 1187 1187 1367; Add 1206 1206 1187; Sub 1600 1600 1206;
  Mul 1600 213 1600; Sub 1572 1572 1600; Mul 1206 567 1584; Mul 1187 260 1688; Mul 1367 263 1646;
  Mul 1356 127 1349; Sub 1367 1367 1356; Add 1187 1187 1367; Mul 1367 265 1187; Mul 1356 547 1688;
  Add 1367 1367 1356; Mul 1688 127 1688; Mul 1646 268 1646; Mul 1356 563 1349; Sub 1646 1646 1356;
  Add 1688 1688 1646; Mul 1646 216 1688; Mul 1356 562 1349; Sub 1646 1646 1356; Add 1367 1367 1646;
  Mul 1646 1138 1097; Mul 1356 1357 1631; Add 1444 1646 1356; Mul 1444 269 1444; Add 1444 1367 1444;
  Mul 1224 258 1444; Add 1525 1206 1224; Mul 1332 570 1079; Mul 1187 253 1187; Mul 1276 547 1276;
  Add 1187 1187 1276; Mul 1688 215 1688; Mul 1276 562 1656; Add 1688 1688 1276; Sub 1187 1187 1688;
  Mul 1484 135 1484; Sub 1187 1187 1484; Mul 1431 271 1431; Mul 1484 283 1389; Add 1431 1431 1484;
  Sub 1431 1187 1431; Mul 1484 279 1431; Add 1688 1332 1484; Sub 1525 1525 1688; Mul 1688 300 1631;
  Mul 1276 275 1055; Add 1400 1688 1276; Mul 1278 271 1384; Mul 1247 292 1389; Add 1228 1278 1247;
  Add 1400 1400 1228; Mul 1228 1366 1389; Add 1646 1646 1228; Mul 1646 269 1646; Add 1646 1208 1646;
  Mul 1194 258 1646; Mul 1650 565 1584; Add 1653 1194 1650; Mul 1580 574 1283; Mul 1308 213 1345;
  Mul 1115 284 1308; Add 1359 1580 1115; Sub 1653 1653 1359; Add 1400 1400 1653; Sub 1525 1525 1400;
  Mul 1400 571 1338; Add 1653 1367 1208; Mul 1359 255 1653; Sub 1400 1400 1359; Mul 1359 278 1187;
  Mul 1157 569 1573; Add 1359 1359 1157; Add 1400 1400 1359; Mul 1359 296 1450; Mul 1157 280 1345;
  Add 1359 1359 1157; Add 1400 1400 1359; Mul 1359 471 1389; Mul 1157 278 1097; Mul 1694 282 1573;
  Add 1157 1157 1694; Mul 1694 255 1389; Mul 1302 271 1338; Add 1694 1694 1302; Sub 1157 1157 1694;
  Sub 1157 1258 1157; Mul 1157 269 1157; Mul 1694 271 1157; Add 1359 1359 1694; Mul 1694 573 1631;
  Mul 1302 255 1631; Mul 1616 275 1338; Add 1302 1302 1616; Mul 1616 296 1097; Mul 1364 282 1345;
  Add 1616 1616 1364; Sub 1302 1302 1616; Sub 1302 1231 1302; Mul 1302 269 1302; Mul 1616 275 1302;
  Add 1694 1694 1616; Sub 1359 1359 1694; Add 1400 1400 1359; Mul 1400 213 1400; Sub 1525 1525 1400;
  Mul 1359 581 1210; Mul 1694 314 1536; Mul 1616 317 1571; Mul 1364 128 1349; Sub 1616 1616 1364;
  Add 1694 1694 1616; Mul 1616 319 1694; Mul 1364 561 1536; Add 1616 1616 1364].
Definition casadi_f0_366 : list instruction := [
  Mul 1536 128 1536; Mul 1364 322 1571; Mul 1413 577 1349; Sub 1364 1364 1413; Add 1536 1536 1364;
  Mul 1364 216 1536; Mul 1413 576 1349; Sub 1364 1364 1413; Add 1616 1616 1364; Mul 1364 1379 1074;
  Mul 1413 1381 1289; Add 1235 1364 1413; Mul 1235 323 1235; Add 1235 1616 1235; Mul 1018 312 1235;
  Add 1177 1359 1018; Mul 1435 584 1318; Mul 1694 304 1694; Mul 1175 561 1175; Add 1694 1694 1175;
  Mul 1536 215 1536; Mul 1175 576 1656; Add 1536 1536 1175; Sub 1694 1694 1536; Mul 1230 131 1230;
  Sub 1694 1694 1230; Mul 1297 325 1297; Mul 1230 337 1677; Add 1297 1297 1230; Sub 1297 1694 1297;
  Mul 1230 333 1297; Add 1536 1435 1230; Sub 1177 1177 1536; Mul 1536 354 1289; Mul 1175 329 1327;
  Add 1681 1536 1175; Mul 1236 325 1104; Mul 1287 346 1677; Add 1238 1236 1287; Add 1681 1681 1238;
  Mul 1238 1390 1677; Add 1364 1364 1238; Mul 1364 323 1364; Add 1364 1340 1364; Mul 1320 312 1364;
  Mul 1375 579 1210; Add 1179 1320 1375; Mul 1460 588 1127; Mul 1583 213 1679; Mul 1661 338 1583;
  Add 1132 1460 1661; Sub 1179 1179 1132; Add 1681 1681 1179; Sub 1177 1177 1681; Mul 1681 585 1690;
  Add 1179 1616 1340; Mul 1132 309 1179; Sub 1681 1681 1132; Mul 1132 332 1694; Mul 1529 583 1507;
  Add 1132 1132 1529; Add 1681 1681 1132; Mul 1132 349 1335; Mul 1529 334 1679; Add 1132 1132 1529;
  Add 1681 1681 1132; Mul 1132 473 1677; Mul 1529 332 1074; Mul 1365 336 1507; Add 1529 1529 1365;
  Mul 1365 309 1677; Mul 1456 325 1690; Add 1365 1365 1456; Sub 1529 1529 1365; Sub 1529 1567 1529;
  Mul 1529 323 1529; Mul 1365 325 1529; Add 1132 1132 1365; Mul 1365 587 1289; Mul 1456 309 1289;
  Mul 1243 329 1690; Add 1456 1456 1243; Mul 1243 349 1074; Mul 1459 336 1679; Add 1243 1243 1459;
  Sub 1456 1456 1243; Sub 1456 1324 1456; Mul 1456 323 1456; Mul 1243 329 1456; Add 1365 1365 1243;
  Sub 1132 1132 1365; Add 1681 1681 1132; Mul 1681 213 1681; Sub 1177 1177 1681; Mul 1132 594 1643;
  Mul 1365 368 1291; Mul 1243 39 1593; Mul 1459 373 1571; Add 1243 1243 1459; Add 1365 1365 1243;
  Mul 1243 372 1365; Mul 1459 575 1291; Add 1243 1243 1459; Mul 1459 39 1291; Mul 1062 376 1593;
  Add 1459 1459 1062; Mul 1062 377 1459; Mul 1593 590 1593; Add 1062 1062 1593; Add 1243 1243 1062;
  Mul 1062 1404 1586; Mul 1593 1405 1372; Add 1071 1062 1593; Mul 1071 378 1071; Add 1071 1243 1071;
  Mul 1546 366 1071; Add 1209 1132 1546; Mul 1598 597 1551; Mul 1365 358 1365; Mul 1252 575 1245;
  Add 1365 1365 1252; Mul 1459 364 1459; Mul 1219 590 1219; Add 1459 1459 1219; Add 1365 1365 1459;
  Mul 1341 69 1341; Add 1365 1365 1341; Mul 1424 381 1424; Mul 1341 392 1237; Add 1424 1424 1341;
  Sub 1424 1365 1424; Mul 1341 388 1424; Add 1459 1598 1341; Sub 1209 1209 1459; Mul 1459 409 1372;
  Mul 1219 384 1635; Add 1252 1459 1219; Mul 1330 381 1151; Mul 1391 401 1237; Add 1394 1330 1391;
  Add 1252 1252 1394; Mul 1394 1414 1237; Add 1062 1062 1394; Mul 1062 378 1062; Add 1062 1497 1062;
  Mul 1491 366 1062; Mul 1123 592 1643; Add 1229 1491 1123; Mul 1255 601 1581].
Definition casadi_f0_367 : list instruction := [
  Mul 1555 213 1122; Mul 1114 393 1555; Add 1022 1255 1114; Sub 1229 1229 1022; Add 1252 1252 1229;
  Sub 1209 1209 1252; Mul 1252 598 1550; Add 1229 1243 1497; Mul 1022 363 1229; Sub 1252 1252 1022;
  Mul 1022 387 1365; Mul 1103 596 1156; Add 1022 1022 1103; Add 1252 1252 1022; Mul 1022 405 1319;
  Mul 1103 389 1122; Add 1022 1022 1103; Add 1252 1252 1022; Mul 1022 475 1237; Mul 1103 387 1586;
  Mul 1221 391 1156; Add 1103 1103 1221; Mul 1221 363 1237; Mul 1091 381 1550; Add 1221 1221 1091;
  Sub 1103 1103 1221; Sub 1103 1697 1103; Mul 1103 378 1103; Mul 1221 381 1103; Add 1022 1022 1221;
  Mul 1221 600 1372; Mul 1091 363 1372; Mul 1602 384 1550; Add 1091 1091 1602; Mul 1602 405 1586;
  Mul 1609 391 1122; Add 1602 1602 1609; Sub 1091 1091 1602; Sub 1091 1309 1091; Mul 1091 378 1091;
  Mul 1602 384 1091; Add 1221 1221 1602; Sub 1022 1022 1221; Add 1252 1252 1022; Mul 1252 213 1252;
  Sub 1209 1209 1252; Mul 1022 607 1143; Mul 1221 423 1291; Mul 1602 40 1382; Mul 1609 42 1618;
  Add 1602 1602 1609; Add 1221 1221 1602; Mul 1602 372 1221; Mul 1609 589 1291; Add 1602 1602 1609;
  Mul 1609 40 1291; Mul 1517 14 1382; Mul 1618 18 1618; Add 1517 1517 1618; Add 1609 1609 1517;
  Mul 1517 429 1609; Mul 1382 603 1382; Add 1517 1517 1382; Add 1602 1602 1517; Mul 1517 1428 1425;
  Mul 1382 1264 1358; Add 1618 1517 1382; Mul 1618 430 1618; Add 1618 1602 1618; Mul 1513 420 1618;
  Add 1547 1022 1513; Mul 1545 610 1523; Mul 1221 358 1221; Mul 1627 589 1245; Add 1221 1221 1627;
  Mul 1609 418 1609; Mul 1473 603 1473; Add 1609 1609 1473; Add 1221 1221 1609; Mul 1503 43 1503;
  Mul 1609 431 1466; Sub 1503 1503 1609; Add 1221 1221 1503; Mul 1154 434 1154; Mul 1503 446 1499;
  Add 1154 1154 1503; Sub 1154 1221 1154; Mul 1503 442 1154; Add 1609 1545 1503; Sub 1547 1547 1609;
  Mul 1609 463 1358; Mul 1473 438 1461; Add 1627 1609 1473; Mul 1172 434 1369; Mul 1025 455 1499;
  Add 1518 1172 1025; Add 1627 1627 1518; Mul 1518 1437 1499; Add 1517 1517 1518; Mul 1517 430 1517;
  Add 1517 1084 1517; Mul 1266 420 1517; Mul 1169 605 1143; Add 1363 1266 1169; Mul 1189 614 1667;
  Mul 1329 213 1360; Mul 1510 447 1329; Add 1549 1189 1510; Sub 1363 1363 1549; Add 1627 1627 1363;
  Sub 1547 1547 1627; Mul 1627 13 1196; Add 1363 1602 1084; Mul 1549 417 1363; Sub 1627 1627 1549;
  Mul 1549 441 1221; Mul 1137 609 1032; Add 1549 1549 1137; Add 1627 1627 1549; Mul 1549 459 1195;
  Mul 1137 443 1360; Add 1549 1549 1137; Add 1627 1627 1549; Mul 1549 477 1499; Mul 1137 441 1425;
  Mul 1674 445 1032; Add 1137 1137 1674; Mul 1674 417 1499; Mul 1316 434 1196; Add 1674 1674 1316;
  Sub 1137 1137 1674; Sub 1137 1506 1137; Mul 1137 430 1137; Mul 1674 434 1137; Add 1549 1549 1674;
  Mul 1674 611 1358; Mul 1316 417 1358; Mul 1577 438 1196; Add 1316 1316 1577; Mul 1577 459 1425;
  Mul 1112 445 1360; Add 1577 1577 1112; Sub 1316 1316 1577; Sub 1316 1298 1316; Mul 1316 430 1316;
  Mul 1577 438 1316; Add 1674 1674 1577; Sub 1549 1549 1674; Add 1627 1627 1549].
Definition casadi_f0_368 : list instruction := [
  Mul 1627 213 1627; Sub 1547 1547 1627; Add 1209 1209 1547; Add 1177 1177 1209; Add 1525 1525 1177;
  Add 1572 1572 1525; Mul 1572 216 1572; Mul 1549 554 1349; Sub 1572 1572 1549; Mul 1549 242 1604;
  Mul 1674 230 1268; Sub 1549 1549 1674; Mul 1674 560 1539; Mul 1577 248 1658; Add 1112 1674 1577;
  Mul 1047 244 1047; Mul 1199 551 1695; Add 1094 1047 1199; Sub 1112 1112 1094; Sub 1112 1549 1112;
  Mul 1094 556 1042; Mul 1552 249 1423; Add 1624 1094 1552; Mul 1519 558 1695; Sub 1337 1337 1639;
  Mul 1337 212 1337; Add 1337 1105 1337; Mul 1639 244 1337; Add 1522 1519 1639; Sub 1624 1624 1522;
  Add 1112 1112 1624; Mul 1624 219 1548; Mul 1522 555 1415; Add 1624 1624 1522; Mul 1522 227 1285;
  Mul 1141 550 1142; Add 1522 1522 1141; Add 1624 1624 1522; Mul 1522 525 1339; Mul 1141 246 1493;
  Add 1522 1522 1141; Add 1624 1624 1522; Mul 1522 231 1248; Mul 1141 340 1147; Sub 1522 1522 1141;
  Mul 1141 525 1412; Mul 1282 225 1493; Add 1141 1141 1282; Mul 1282 242 1142; Mul 1693 227 1268;
  Sub 1282 1282 1693; Sub 1141 1141 1282; Add 1141 1254 1141; Mul 1141 212 1141; Mul 1282 242 1141;
  Mul 1693 616 1268; Sub 1282 1282 1693; Sub 1522 1522 1282; Add 1624 1624 1522; Mul 1624 213 1624;
  Add 1112 1112 1624; Mul 1522 570 1584; Mul 1282 258 1431; Add 1693 1522 1282; Mul 1353 572 1079;
  Add 1228 1228 1356; Mul 1228 269 1228; Sub 1228 1228 1653; Mul 1356 279 1228; Add 1393 1353 1356;
  Sub 1693 1693 1393; Mul 1393 297 1631; Mul 1589 275 1645; Add 1263 1393 1589; Mul 1183 282 1384;
  Mul 1486 292 1097; Add 1075 1183 1486; Add 1263 1263 1075; Mul 1075 574 1515; Mul 1647 276 1308;
  Add 1701 1075 1647; Mul 1646 279 1646; Mul 1202 565 1079; Add 1296 1646 1202; Sub 1701 1701 1296;
  Add 1263 1263 1701; Sub 1693 1693 1263; Mul 1263 255 1187; Mul 1701 569 1338; Add 1263 1263 1701;
  Mul 1701 278 1367; Mul 1296 564 1573; Add 1701 1701 1296; Add 1263 1263 1701; Mul 1701 296 1617;
  Mul 1296 266 1345; Add 1701 1701 1296; Add 1263 1263 1701; Mul 1701 617 1631; Mul 1296 296 1389;
  Mul 1668 271 1345; Add 1296 1296 1668; Mul 1668 278 1631; Mul 1312 275 1573; Add 1668 1668 1312;
  Sub 1296 1296 1668; Sub 1296 1611 1296; Mul 1296 269 1296; Mul 1668 275 1296; Add 1701 1701 1668;
  Mul 1668 471 1097; Mul 1312 282 1157; Add 1668 1668 1312; Sub 1701 1701 1668; Add 1263 1263 1701;
  Mul 1263 213 1263; Add 1693 1693 1263; Mul 1701 584 1210; Mul 1668 312 1297; Add 1312 1701 1668;
  Mul 1666 586 1318; Add 1238 1238 1413; Mul 1238 323 1238; Sub 1238 1238 1179; Mul 1413 333 1238;
  Add 1239 1666 1413; Sub 1312 1312 1239; Mul 1239 351 1289; Mul 1634 329 1682; Add 1488 1239 1634;
  Mul 1422 336 1104; Mul 1649 346 1074; Add 1699 1422 1649; Add 1488 1488 1699; Mul 1699 588 1495;
  Mul 1585 330 1583; Add 1087 1699 1585; Mul 1364 333 1364; Mul 1354 579 1318; Add 1275 1364 1354;
  Sub 1087 1087 1275; Add 1488 1488 1087; Sub 1312 1312 1488; Mul 1488 309 1694; Mul 1087 583 1690;
  Add 1488 1488 1087; Mul 1087 332 1616; Mul 1275 578 1507; Add 1087 1087 1275].
Definition casadi_f0_369 : list instruction := [
  Add 1488 1488 1087; Mul 1087 349 1398; Mul 1275 320 1679; Add 1087 1087 1275; Add 1488 1488 1087;
  Mul 1087 619 1289; Mul 1275 349 1677; Mul 1445 325 1679; Add 1275 1275 1445; Mul 1445 332 1289;
  Mul 1277 329 1507; Add 1445 1445 1277; Sub 1275 1275 1445; Sub 1275 1242 1275; Mul 1275 323 1275;
  Mul 1445 329 1275; Add 1087 1087 1445; Mul 1445 473 1074; Mul 1277 336 1529; Add 1445 1445 1277;
  Sub 1087 1087 1445; Add 1488 1488 1087; Mul 1488 213 1488; Add 1312 1312 1488; Mul 1087 597 1643;
  Mul 1445 366 1424; Add 1277 1087 1445; Mul 1171 599 1551; Add 1394 1394 1593; Mul 1394 378 1394;
  Sub 1394 1394 1229; Mul 1593 388 1394; Add 1288 1171 1593; Sub 1277 1277 1288; Mul 1288 406 1372;
  Mul 1188 384 1481; Add 1455 1288 1188; Mul 1438 391 1151; Mul 1311 401 1586; Add 1671 1438 1311;
  Add 1455 1455 1671; Mul 1671 601 1351; Mul 1533 385 1555; Add 1509 1671 1533; Mul 1062 388 1062;
  Mul 1620 592 1551; Add 1166 1062 1620; Sub 1509 1509 1166; Add 1455 1455 1509; Sub 1277 1277 1455;
  Mul 1455 363 1365; Mul 1509 596 1550; Add 1455 1455 1509; Mul 1509 387 1243; Mul 1166 591 1156;
  Add 1509 1509 1166; Add 1455 1455 1509; Mul 1509 405 1034; Mul 1166 374 1122; Add 1509 1509 1166;
  Add 1455 1455 1509; Mul 1509 621 1372; Mul 1166 405 1237; Mul 1139 381 1122; Add 1166 1166 1139;
  Mul 1139 387 1372; Mul 1662 384 1156; Add 1139 1139 1662; Sub 1166 1166 1139; Sub 1166 1301 1166;
  Mul 1166 378 1166; Mul 1139 384 1166; Add 1509 1509 1139; Mul 1139 475 1586; Mul 1662 391 1103;
  Add 1139 1139 1662; Sub 1509 1509 1139; Add 1455 1455 1509; Mul 1455 213 1455; Add 1277 1277 1455;
  Mul 1509 610 1143; Mul 1139 420 1154; Add 1662 1509 1139; Mul 1468 612 1523; Add 1518 1518 1382;
  Mul 1518 430 1518; Sub 1518 1518 1363; Mul 1382 442 1518; Add 1111 1468 1382; Sub 1662 1662 1111;
  Mul 1111 460 1358; Mul 1173 438 1182; Add 1161 1111 1173; Mul 1192 445 1369; Mul 1537 455 1425;
  Add 1451 1192 1537; Add 1161 1161 1451; Mul 1451 614 1469; Mul 1559 439 1329; Add 1256 1451 1559;
  Mul 1517 442 1517; Mul 1218 605 1523; Add 1269 1517 1218; Sub 1256 1256 1269; Add 1161 1161 1256;
  Sub 1662 1662 1161; Mul 1161 417 1221; Mul 1256 609 1196; Add 1161 1161 1256; Mul 1256 441 1602;
  Mul 1269 604 1032; Add 1256 1256 1269; Add 1161 1161 1256; Mul 1256 459 1557; Mul 1269 426 1360;
  Add 1256 1256 1269; Add 1161 1161 1256; Mul 1256 623 1358; Mul 1269 459 1499; Mul 1333 434 1360;
  Add 1269 1269 1333; Mul 1333 441 1358; Mul 1185 438 1032; Add 1333 1333 1185; Sub 1269 1269 1333;
  Sub 1269 1134 1269; Mul 1269 430 1269; Mul 1333 438 1269; Add 1256 1256 1333; Mul 1333 477 1425;
  Mul 1185 445 1137; Add 1333 1333 1185; Sub 1256 1256 1333; Add 1161 1161 1256; Mul 1161 213 1161;
  Add 1662 1662 1161; Add 1277 1277 1662; Add 1312 1312 1277; Add 1693 1693 1312; Add 1112 1112 1693;
  Mul 1112 215 1112; Mul 1256 613 1656; Add 1112 1112 1256; Sub 1572 1572 1112; Mul 1112 212 1042;
  Mul 1256 242 1112; Mul 1333 624 1268; Sub 1256 1256 1333; Mul 1333 212 1658].
Definition casadi_f0_370 : list instruction := [
  Mul 1185 231 1333; Mul 1257 626 1147; Sub 1185 1185 1257; Add 1185 1343 1185; Sub 1256 1256 1185;
  Mul 1185 213 1675; Add 1257 1256 1185; Mul 1373 269 1584; Mul 1606 275 1373; Mul 1380 629 1631;
  Add 1292 1606 1380; Mul 1326 631 1097; Mul 1313 269 1308; Mul 1421 282 1313; Add 1106 1326 1421;
  Add 1106 1055 1106; Sub 1292 1292 1106; Mul 1106 213 1302; Add 1410 1292 1106; Mul 1644 323 1210;
  Mul 1225 329 1644; Mul 1376 634 1289; Add 1191 1225 1376; Mul 1403 636 1074; Mul 1520 323 1583;
  Mul 1227 336 1520; Add 1090 1403 1227; Add 1090 1327 1090; Sub 1191 1191 1090; Mul 1090 213 1456;
  Add 1120 1191 1090; Mul 1190 378 1643; Mul 1317 384 1190; Mul 1253 639 1372; Add 1116 1317 1253;
  Mul 1574 641 1586; Mul 1448 378 1555; Mul 1441 391 1448; Add 1395 1574 1441; Add 1395 1635 1395;
  Sub 1116 1116 1395; Mul 1395 213 1091; Add 1108 1116 1395; Mul 1464 430 1143; Mul 1597 438 1464;
  Mul 1687 644 1358; Add 1140 1597 1687; Mul 1432 646 1425; Mul 1204 430 1329; Mul 1213 445 1204;
  Add 1193 1432 1213; Add 1193 1461 1193; Sub 1140 1140 1193; Mul 1193 213 1316; Add 1558 1140 1193;
  Add 1108 1108 1558; Add 1120 1120 1108; Add 1410 1410 1120; Add 1257 1257 1410; Mul 1257 540 1257;
  Mul 1465 628 1556; Sub 1257 1257 1465; Mul 1465 212 1695; Mul 1540 242 1465; Mul 1483 650 1268;
  Sub 1540 1540 1483; Mul 1483 626 1412; Mul 1480 225 1333; Add 1483 1483 1480; Add 1483 1604 1483;
  Sub 1540 1540 1483; Mul 1483 213 1141; Add 1480 1540 1483; Mul 1698 631 1389; Mul 1267 271 1313;
  Add 1664 1698 1267; Sub 1664 1645 1664; Mul 1442 269 1079; Mul 1201 275 1442; Mul 1300 655 1631;
  Add 1146 1201 1300; Add 1664 1664 1146; Mul 1146 213 1296; Sub 1595 1664 1146; Mul 1447 636 1677;
  Mul 1205 325 1520; Add 1527 1447 1205; Sub 1527 1682 1527; Mul 1476 323 1318; Mul 1281 329 1476;
  Mul 1167 659 1289; Add 1088 1281 1167; Add 1527 1527 1088; Mul 1088 213 1275; Sub 1582 1527 1088;
  Mul 1396 641 1237; Mul 1587 381 1448; Add 1613 1396 1587; Sub 1613 1481 1613; Mul 1086 378 1551;
  Mul 1494 384 1086; Mul 1244 663 1372; Add 1399 1494 1244; Add 1613 1613 1399; Mul 1399 213 1166;
  Sub 1478 1613 1399; Mul 1176 646 1499; Mul 1355 434 1204; Add 1378 1176 1355; Sub 1378 1182 1378;
  Mul 1500 430 1523; Mul 1348 438 1500; Mul 1449 667 1358; Add 1458 1348 1449; Add 1378 1378 1458;
  Mul 1458 213 1269; Sub 1314 1378 1458; Add 1478 1478 1314; Add 1582 1582 1478; Add 1595 1595 1582;
  Add 1480 1480 1595; Mul 1480 544 1480; Mul 1361 653 1621; Add 1480 1480 1361; Add 1257 1257 1480;
  Sub 1572 1572 1257; Add 1417 1417 1572; Mul 1417 1 1417; Mul 1572 509 1505; Add 1417 1417 1572;
  Add 1026 1026 1417; Mul 1417 602 1477; Mul 1572 216 1345; Mul 1257 296 1349; Sub 1572 1572 1257;
  Mul 1257 517 1572; Add 1417 1417 1257; Mul 1257 670 1203; Mul 1480 215 1345; Mul 1361 296 1656;
  Add 1480 1480 1361; Mul 1361 532 1480; Add 1257 1257 1361; Add 1417 1417 1257; Mul 1082 671 1082;
  Mul 1257 216 1338; Mul 1361 255 1349; Sub 1257 1257 1361; Mul 1361 215 1573].
Definition casadi_f0_371 : list instruction := [
  Mul 1575 278 1656; Add 1361 1361 1575; Add 1257 1257 1361; Mul 1361 492 1257; Add 1082 1082 1361;
  Sub 1417 1417 1082; Mul 1082 675 1216; Mul 1361 215 1258; Mul 1575 290 1656; Add 1361 1361 1575;
  Mul 1575 674 1345; Mul 1502 216 1401; Mul 1416 274 1349; Add 1502 1502 1416; Mul 1416 296 1502;
  Sub 1575 1575 1416; Mul 1416 676 1338; Mul 1121 215 1121; Mul 1295 270 1656; Add 1121 1121 1295;
  Mul 1163 216 1163; Mul 1295 281 1349; Add 1163 1163 1295; Sub 1121 1121 1163; Mul 1163 255 1121;
  Add 1416 1416 1163; Add 1575 1575 1416; Add 1361 1361 1575; Mul 1575 602 1346; Mul 1416 523 1572;
  Add 1575 1575 1416; Mul 1416 671 1216; Mul 1163 502 1257; Add 1416 1416 1163; Add 1575 1575 1416;
  Sub 1575 1361 1575; Mul 1575 672 1575; Mul 1416 502 1575; Add 1082 1082 1416; Mul 1416 679 1089;
  Mul 1258 216 1258; Mul 1163 290 1349; Sub 1258 1258 1163; Mul 1163 676 1573; Mul 1295 278 1121;
  Add 1163 1163 1295; Mul 1295 680 1345; Mul 1270 274 1656; Mul 1401 215 1401; Sub 1270 1270 1401;
  Mul 1401 296 1270; Add 1295 1295 1401; Add 1163 1163 1295; Sub 1258 1258 1163; Mul 1163 671 1089;
  Mul 1295 505 1257; Add 1163 1163 1295; Mul 1295 670 1346; Mul 1401 523 1480; Add 1295 1295 1401;
  Add 1163 1163 1295; Add 1163 1258 1163; Mul 1163 672 1163; Mul 1295 505 1163; Add 1416 1416 1295;
  Sub 1082 1082 1416; Add 1417 1417 1082; Mul 1410 674 1410; Mul 1082 633 1502; Sub 1410 1410 1082;
  Mul 1595 680 1595; Mul 1082 657 1270; Add 1595 1595 1082; Mul 1313 275 1313; Mul 1631 631 1631;
  Add 1082 1313 1631; Mul 1416 629 1097; Mul 1295 282 1373; Add 1401 1416 1295; Mul 1280 655 1389;
  Mul 1570 271 1442; Add 1272 1280 1570; Add 1631 1631 1313; Add 1313 1272 1631; Add 1401 1401 1313;
  Sub 1038 1082 1401; Add 1295 1295 1416; Add 1570 1570 1280; Add 1082 1570 1082; Add 1295 1295 1082;
  Sub 1631 1631 1295; Sub 1038 1038 1631; Mul 1520 329 1520; Mul 1289 636 1289; Add 1631 1520 1289;
  Mul 1280 634 1074; Mul 1416 336 1644; Add 1347 1280 1416; Mul 1107 659 1677; Mul 1386 325 1476;
  Add 1471 1107 1386; Add 1289 1289 1520; Add 1520 1471 1289; Add 1347 1347 1520; Sub 1124 1631 1347;
  Add 1416 1416 1280; Add 1386 1386 1107; Add 1631 1386 1631; Add 1416 1416 1631; Sub 1289 1289 1416;
  Sub 1124 1124 1289; Mul 1448 384 1448; Mul 1372 641 1372; Add 1289 1448 1372; Mul 1107 639 1586;
  Mul 1280 391 1190; Add 1599 1107 1280; Mul 1233 663 1237; Mul 1544 381 1086; Add 1144 1233 1544;
  Add 1372 1372 1448; Add 1448 1144 1372; Add 1599 1599 1448; Sub 1443 1289 1599; Add 1280 1280 1107;
  Add 1544 1544 1233; Add 1289 1544 1289; Add 1280 1280 1289; Sub 1372 1372 1280; Sub 1443 1443 1372;
  Mul 1204 438 1204; Mul 1372 646 1358; Add 1233 1204 1372; Mul 1107 644 1425; Mul 1565 445 1464;
  Add 1102 1107 1565; Mul 1501 667 1499; Mul 1321 434 1500; Add 1215 1501 1321; Add 1372 1372 1204;
  Add 1204 1215 1372; Add 1102 1102 1204; Sub 1608 1233 1102; Add 1565 1565 1107; Add 1321 1321 1501;
  Add 1233 1321 1233; Add 1565 1565 1233; Sub 1372 1372 1565; Sub 1608 1608 1372].
Definition casadi_f0_372 : list instruction := [
  Add 1443 1443 1608; Add 1124 1124 1443; Add 1038 1038 1124; Mul 1038 676 1038; Mul 1372 687 1121;
  Add 1501 1038 1372; Sub 1595 1595 1501; Add 1410 1410 1595; Mul 1693 215 1693; Mul 1595 552 1656;
  Add 1693 1693 1595; Mul 1525 216 1525; Mul 1595 568 1349; Sub 1525 1525 1595; Sub 1693 1693 1525;
  Add 1410 1410 1693; Add 1417 1417 1410; Mul 1417 2 1417; Mul 1410 649 1110; Add 1417 1417 1410;
  Add 1026 1026 1417; Mul 1654 677 1654; Mul 1417 216 1690; Mul 1410 309 1349; Sub 1417 1417 1410;
  Mul 1410 215 1507; Mul 1693 332 1656; Add 1410 1410 1693; Add 1417 1417 1410; Mul 1410 484 1417;
  Add 1654 1654 1410; Mul 1410 706 1259; Mul 1693 216 1679; Mul 1525 349 1349; Sub 1693 1693 1525;
  Mul 1525 513 1693; Add 1410 1410 1525; Mul 1525 712 1543; Mul 1595 215 1679; Mul 1501 349 1656;
  Add 1595 1595 1501; Mul 1501 530 1595; Add 1525 1525 1501; Add 1410 1410 1525; Sub 1654 1654 1410;
  Mul 1410 711 1060; Mul 1525 706 1433; Mul 1501 519 1693; Add 1525 1525 1501; Mul 1501 677 1060;
  Mul 1107 494 1417; Add 1501 1501 1107; Add 1525 1525 1501; Mul 1501 215 1567; Mul 1107 344 1656;
  Add 1501 1501 1107; Mul 1107 714 1679; Mul 1251 216 1310; Mul 1689 328 1349; Sub 1251 1251 1689;
  Mul 1689 349 1251; Add 1107 1107 1689; Mul 1689 716 1690; Mul 1093 216 1093; Mul 1538 335 1349;
  Sub 1093 1093 1538; Mul 1511 215 1511; Mul 1538 324 1656; Add 1511 1511 1538; Add 1093 1093 1511;
  Mul 1511 309 1093; Add 1689 1689 1511; Add 1107 1107 1689; Add 1501 1501 1107; Sub 1525 1525 1501;
  Mul 1525 156 1525; Mul 1107 494 1525; Add 1410 1410 1107; Mul 1107 719 1535; Mul 1689 716 1507;
  Mul 1511 332 1093; Add 1689 1689 1511; Mul 1511 718 1679; Mul 1310 215 1310; Mul 1538 328 1656;
  Add 1310 1310 1538; Mul 1538 349 1310; Add 1511 1511 1538; Add 1689 1689 1511; Mul 1567 216 1567;
  Mul 1511 344 1349; Sub 1567 1567 1511; Sub 1689 1689 1567; Mul 1567 677 1535; Mul 1511 497 1417;
  Add 1567 1567 1511; Mul 1511 712 1433; Mul 1538 519 1595; Add 1511 1511 1538; Add 1567 1567 1511;
  Sub 1567 1689 1567; Mul 1567 156 1567; Mul 1511 497 1567; Add 1107 1107 1511; Sub 1410 1410 1107;
  Add 1654 1654 1410; Mul 1124 716 1124; Mul 1410 694 1093; Add 1107 1124 1410; Mul 1582 718 1582;
  Mul 1511 661 1310; Add 1582 1582 1511; Sub 1107 1107 1582; Mul 1120 714 1120; Mul 1582 638 1251;
  Add 1120 1120 1582; Sub 1107 1107 1120; Mul 1177 216 1177; Mul 1120 582 1349; Sub 1177 1177 1120;
  Mul 1312 215 1312; Mul 1120 618 1656; Add 1312 1312 1120; Sub 1177 1177 1312; Add 1107 1107 1177;
  Add 1654 1654 1107; Mul 1654 3 1654; Mul 1107 681 1207; Add 1654 1654 1107; Add 1026 1026 1654;
  Mul 1654 715 1350; Mul 1107 327 1122; Mul 1177 405 1571; Add 1107 1107 1177; Mul 1177 318 1156;
  Mul 1312 387 1096; Add 1177 1177 1312; Sub 1107 1107 1177; Mul 1177 510 1107; Add 1654 1654 1177;
  Mul 1177 721 1660; Mul 1312 318 1550; Mul 1120 363 1096; Add 1312 1312 1120; Mul 1120 310 1122;
  Mul 1582 405 1475; Add 1120 1120 1582; Sub 1312 1312 1120; Mul 1120 528 1312].
Definition casadi_f0_373 : list instruction := [
  Add 1177 1177 1120; Add 1654 1654 1177; Mul 1177 722 1118; Mul 1120 310 1156; Mul 1582 387 1475;
  Add 1120 1120 1582; Mul 1582 327 1550; Mul 1511 363 1571; Add 1582 1582 1511; Sub 1120 1120 1582;
  Mul 1582 479 1120; Add 1177 1177 1582; Add 1654 1654 1177; Mul 1177 726 1651; Mul 1582 318 1301;
  Mul 1511 404 1096; Add 1582 1582 1511; Mul 1511 310 1697; Mul 1538 399 1475; Add 1511 1511 1538;
  Sub 1582 1582 1511; Mul 1511 725 1122; Mul 1538 327 1223; Mul 1279 383 1571; Add 1538 1538 1279;
  Mul 1279 318 1261; Mul 1467 379 1096; Add 1279 1279 1467; Sub 1538 1538 1279; Mul 1279 405 1538;
  Add 1511 1511 1279; Mul 1279 727 1550; Mul 1261 310 1261; Mul 1467 379 1475; Add 1261 1261 1467;
  Mul 1467 327 1303; Mul 1504 390 1571; Add 1467 1467 1504; Sub 1261 1261 1467; Mul 1467 363 1261;
  Add 1279 1279 1467; Sub 1511 1511 1279; Add 1582 1582 1511; Mul 1511 715 1370; Mul 1279 515 1107;
  Add 1511 1511 1279; Mul 1279 722 1651; Mul 1467 486 1120; Add 1279 1279 1467; Sub 1511 1511 1279;
  Sub 1511 1582 1511; Mul 1511 723 1511; Mul 1279 486 1511; Add 1177 1177 1279; Mul 1279 730 1315;
  Mul 1697 327 1697; Mul 1467 399 1571; Add 1697 1697 1467; Mul 1467 318 1309; Mul 1504 408 1096;
  Add 1467 1467 1504; Sub 1697 1697 1467; Mul 1467 727 1156; Mul 1504 387 1261; Add 1467 1467 1504;
  Mul 1504 731 1122; Mul 1303 318 1303; Mul 1119 390 1096; Add 1303 1303 1119; Mul 1223 310 1223;
  Mul 1119 383 1475; Add 1223 1223 1119; Sub 1303 1303 1223; Mul 1223 405 1303; Add 1504 1504 1223;
  Sub 1467 1467 1504; Add 1697 1697 1467; Mul 1467 722 1315; Mul 1504 489 1120; Add 1467 1467 1504;
  Mul 1504 721 1370; Mul 1223 515 1312; Add 1504 1504 1223; Sub 1467 1467 1504; Sub 1467 1697 1467;
  Mul 1467 723 1467; Mul 1504 489 1467; Add 1279 1279 1504; Sub 1177 1177 1279; Add 1654 1654 1177;
  Mul 1177 725 1108; Mul 1279 643 1538; Add 1177 1177 1279; Mul 1279 731 1478; Mul 1504 665 1303;
  Add 1279 1279 1504; Mul 1504 727 1443; Mul 1223 701 1261; Add 1119 1504 1223; Add 1279 1279 1119;
  Add 1177 1177 1279; Mul 1279 310 1277; Mul 1119 620 1475; Add 1279 1279 1119; Mul 1119 327 1209;
  Mul 1152 595 1571; Add 1119 1119 1152; Mul 1457 318 1457; Mul 1152 395 1096; Add 1628 1457 1152;
  Add 1119 1119 1628; Add 1279 1279 1119; Sub 1177 1177 1279; Add 1654 1654 1177; Mul 1177 4 1654;
  Mul 1279 720 1418; Add 1177 1177 1279; Add 1026 1026 1177; Mul 1177 728 1195; Mul 1279 372 1360;
  Mul 1119 459 1291; Add 1279 1279 1119; Mul 1119 369 1032; Mul 1628 441 1466; Add 1119 1119 1628;
  Sub 1279 1279 1119; Mul 1119 443 1279; Add 1177 1177 1119; Mul 1119 733 1557; Mul 1628 369 1196;
  Mul 1162 417 1466; Add 1628 1628 1162; Mul 1162 358 1360; Mul 1180 459 1245; Add 1162 1162 1180;
  Sub 1628 1628 1162; Mul 1162 426 1628; Add 1119 1119 1162; Add 1177 1177 1119; Mul 1119 734 1084;
  Mul 1162 358 1032; Mul 1180 441 1245; Add 1162 1162 1180; Mul 1180 372 1196; Mul 1420 417 1291;
  Add 1180 1180 1420; Sub 1162 1162 1180; Mul 1180 478 1162; Add 1119 1119 1180].
Definition casadi_f0_374 : list instruction := [
  Add 1177 1177 1119; Mul 1119 735 1425; Mul 1180 369 1134; Mul 1420 458 1466; Add 1180 1180 1420;
  Mul 1420 358 1506; Mul 1636 451 1245; Add 1420 1420 1636; Sub 1180 1180 1420; Mul 1420 736 1360;
  Mul 1636 372 1170; Mul 1200 437 1291; Add 1636 1636 1200; Mul 1200 369 1633; Mul 1052 432 1466;
  Add 1200 1200 1052; Sub 1636 1636 1200; Mul 1200 459 1636; Add 1420 1420 1200; Mul 1200 738 1196;
  Mul 1633 358 1633; Mul 1052 432 1245; Add 1633 1633 1052; Mul 1052 372 1241; Mul 1684 444 1291;
  Add 1052 1052 1684; Sub 1633 1633 1052; Mul 1052 417 1633; Add 1200 1200 1052; Sub 1420 1420 1200;
  Add 1180 1180 1420; Mul 1420 728 1358; Mul 1200 438 1279; Add 1420 1420 1200; Mul 1200 734 1425;
  Mul 1052 445 1162; Add 1200 1200 1052; Sub 1420 1420 1200; Sub 1180 1180 1420; Mul 1180 430 1180;
  Mul 1420 445 1180; Add 1119 1119 1420; Mul 1420 739 1499; Mul 1506 372 1506; Mul 1200 451 1291;
  Add 1506 1506 1200; Mul 1200 369 1298; Mul 1052 462 1466; Add 1200 1200 1052; Sub 1506 1506 1200;
  Mul 1200 738 1032; Mul 1052 441 1633; Add 1200 1200 1052; Mul 1052 741 1360; Mul 1241 369 1241;
  Mul 1684 444 1466; Add 1241 1241 1684; Mul 1170 358 1170; Mul 1684 437 1245; Add 1170 1170 1684;
  Sub 1241 1241 1170; Mul 1170 459 1241; Add 1052 1052 1170; Sub 1200 1200 1052; Add 1506 1506 1200;
  Mul 1200 734 1499; Mul 1052 434 1162; Add 1200 1200 1052; Mul 1052 733 1358; Mul 1170 438 1628;
  Add 1052 1052 1170; Sub 1200 1200 1052; Sub 1506 1506 1200; Mul 1506 430 1506; Mul 1200 434 1506;
  Add 1420 1420 1200; Sub 1119 1119 1420; Add 1177 1177 1119; Mul 1119 736 1558; Mul 1420 648 1636;
  Add 1119 1119 1420; Mul 1420 741 1314; Mul 1200 669 1241; Add 1420 1420 1200; Mul 1200 738 1608;
  Mul 1052 708 1633; Add 1170 1200 1052; Add 1420 1420 1170; Add 1119 1119 1420; Mul 1420 358 1662;
  Mul 1170 622 1245; Add 1420 1420 1170; Mul 1170 372 1547; Mul 1684 608 1291; Add 1170 1170 1684;
  Mul 1129 369 1129; Mul 1684 449 1466; Add 1371 1129 1684; Add 1170 1170 1371; Add 1420 1420 1170;
  Sub 1119 1119 1420; Add 1177 1177 1119; Mul 1119 5 1177; Mul 1420 732 1676; Add 1119 1119 1420;
  Add 1026 1026 1119; Mul 1119 286 1323; Mul 1420 212 1119; Mul 1420 107 1420; Mul 1170 745 1470;
  Mul 1371 737 1470; Mul 1648 9 1119; Add 1371 1371 1648; Mul 1648 743 1037; Mul 1164 286 1198; Mul 1669 8 1164;
  Add 1648 1648 1669; Sub 1371 1371 1648; Mul 1648 269 1371; Mul 1669 81 1648; Mul 1098 746 1426;
  Mul 1322 743 1470; Mul 1145 9 1164; Sub 1322 1322 1145; Mul 1119 8 1119; Mul 1145 737 1037;
  Sub 1119 1119 1145; Sub 1322 1322 1119; Mul 1119 53 1322; Add 1098 1098 1119; Mul 1119 66 1371;
  Mul 1145 742 1685; Sub 1119 1119 1145; Add 1098 1098 1119; Mul 1119 323 1098; Mul 1145 47 1119;
  Mul 1211 378 1098; Mul 1407 24 1211; Mul 1560 752 1165; Mul 1240 66 1322; Mul 1655 746 1685;
  Sub 1240 1240 1655; Mul 1655 742 1426; Mul 1371 53 1371; Add 1655 1655 1371; Sub 1240 1240 1655;
  Mul 1655 35 1240; Add 1560 1560 1655; Mul 1655 378 1560].
Definition casadi_f0_375 : list instruction := [
  Mul 1371 31 1655; Sub 1407 1407 1371; Mul 1371 753 1429; Mul 1246 15 1560; Add 1371 1371 1246;
  Mul 1246 16 1098; Mul 1610 747 1632; Sub 1246 1246 1610; Add 1371 1371 1246; Mul 1371 430 1371;
  Mul 1246 26 1371; Mul 1560 16 1560; Mul 1610 753 1632; Sub 1560 1560 1610; Mul 1610 747 1429;
  Mul 1098 15 1098; Add 1610 1610 1098; Sub 1560 1560 1610; Mul 1560 430 1560; Mul 1610 28 1560;
  Sub 1246 1246 1610; Mul 1610 16 1371; Mul 1098 755 1632; Sub 1610 1610 1098; Mul 1098 757 1429;
  Mul 1232 15 1560; Add 1098 1098 1232; Sub 1610 1610 1098; Mul 1098 25 1610; Mul 1232 16 1560;
  Mul 1030 757 1632; Sub 1232 1232 1030; Mul 1030 755 1429; Mul 1049 15 1371; Add 1030 1030 1049;
  Add 1232 1232 1030; Mul 1030 32 1232; Sub 1098 1098 1030; Add 1098 1246 1098; Add 1407 1407 1098;
  Mul 1098 19 1407; Mul 1030 751 1083; Sub 1098 1098 1030; Mul 1030 763 1165; Mul 1049 19 1240;
  Mul 1226 752 1083; Sub 1049 1049 1226; Mul 1226 378 1049; Mul 1076 31 1226; Mul 1638 380 1211;
  Sub 1076 1076 1638; Mul 1049 430 1049; Mul 1638 28 1049; Mul 1371 433 1371; Sub 1638 1638 1371;
  Mul 1371 16 1638; Mul 1680 764 1632; Sub 1371 1371 1680; Mul 1680 766 1429; Mul 1560 433 1560;
  Mul 1692 26 1049; Sub 1560 1560 1692; Mul 1692 15 1560; Add 1680 1680 1692; Add 1371 1371 1680;
  Mul 1680 32 1049; Mul 1692 198 1610; Sub 1680 1680 1692; Add 1371 1371 1680; Add 1076 1076 1371;
  Mul 1371 35 1076; Add 1030 1030 1371; Add 1098 1098 1030; Add 1211 1211 1610; Mul 1610 48 1211;
  Add 1030 1655 1232; Mul 1371 19 1030; Mul 1680 765 1083; Sub 1371 1371 1680; Mul 1680 768 1165;
  Add 1692 1226 1049; Mul 1702 35 1692; Add 1680 1680 1702; Sub 1371 1371 1680; Mul 1680 55 1371;
  Sub 1610 1610 1680; Add 1098 1098 1610; Add 1145 1145 1098; Mul 1098 66 1145; Mul 1610 749 1685;
  Sub 1098 1098 1610; Mul 1610 762 1426; Mul 1655 380 1655; Mul 1226 24 1226; Sub 1655 1655 1226;
  Mul 1560 16 1560; Mul 1632 766 1632; Sub 1560 1560 1632; Mul 1429 764 1429; Mul 1638 15 1638;
  Add 1429 1429 1638; Sub 1560 1560 1429; Mul 1232 198 1232; Mul 1049 25 1049; Sub 1232 1232 1049;
  Add 1560 1560 1232; Add 1655 1655 1560; Mul 1560 62 1371; Mul 1692 19 1692; Mul 1232 768 1083;
  Sub 1692 1692 1232; Mul 1232 765 1165; Mul 1030 35 1030; Add 1232 1232 1030; Add 1692 1692 1232;
  Mul 1232 48 1692; Sub 1560 1560 1232; Add 1560 1655 1560; Mul 1240 323 1240; Mul 1232 47 1240;
  Sub 1560 1560 1232; Mul 1232 53 1560; Add 1610 1610 1232; Add 1098 1098 1610; Mul 1610 86 1371;
  Sub 1098 1098 1610; Add 1669 1669 1098; Mul 1098 9 1669; Add 1170 1170 1098; Mul 1560 66 1560;
  Mul 1098 762 1685; Sub 1560 1560 1098; Mul 1098 749 1426; Mul 1145 53 1145; Add 1098 1098 1145;
  Sub 1560 1560 1098; Mul 1098 91 1371; Add 1560 1560 1098; Mul 1322 269 1322; Mul 1098 81 1322;
  Sub 1560 1560 1098; Mul 1098 8 1560; Mul 1145 758 1037; Sub 1098 1098 1145; Add 1170 1170 1098;
  Mul 1371 102 1371; Add 1098 1240 1692; Mul 1145 66 1098; Mul 1610 770 1685].
Definition casadi_f0_376 : list instruction := [
  Sub 1145 1145 1610; Mul 1610 772 1426; Add 1232 1119 1211; Mul 1030 53 1232; Add 1610 1610 1030;
  Add 1145 1145 1610; Add 1610 1322 1145; Mul 1030 8 1610; Mul 1049 773 1037; Sub 1030 1030 1049;
  Mul 1049 776 1470; Mul 1232 66 1232; Mul 1685 772 1685; Sub 1232 1232 1685; Mul 1426 770 1426;
  Mul 1098 53 1098; Add 1426 1426 1098; Sub 1232 1232 1426; Add 1426 1648 1232; Mul 1098 9 1426;
  Add 1049 1049 1098; Sub 1030 1030 1049; Mul 1030 108 1030; Sub 1371 1371 1030; Add 1170 1170 1371;
  Add 1420 1420 1170; Mul 1420 114 1420; Mul 1198 740 1198; Sub 1420 1420 1198; Mul 1323 774 1323;
  Mul 1669 8 1669; Mul 1198 745 1037; Sub 1669 1669 1198; Mul 1198 758 1470; Mul 1560 9 1560;
  Add 1198 1198 1560; Sub 1669 1669 1198; Mul 1470 773 1470; Mul 1610 9 1610; Add 1470 1470 1610;
  Mul 1426 8 1426; Mul 1037 776 1037; Sub 1426 1426 1037; Add 1470 1470 1426; Mul 1426 108 1470;
  Add 1669 1669 1426; Mul 1164 212 1164; Mul 1426 107 1164; Sub 1669 1669 1426; Mul 1669 113 1669;
  Add 1323 1323 1669; Sub 1420 1420 1323; Add 1026 1026 1420; Mul 1420 210 1026; Sub 1217 1217 1420;
  Div 1420 1307 92; Mul 1323 1069 1024; Sub 1420 1420 1323; Mul 1323 779 1420; Add 1168 1168 1101;
  Add 1566 1566 1430; Sub 1168 1168 1566; Add 1250 1250 1579; Add 1099 1099 1100; Sub 1250 1250 1099;
  Add 1670 1670 1250; Sub 1168 1168 1670; Add 1168 1168 1600; Add 1115 1115 1580; Add 1650 1650 1194;
  Sub 1115 1115 1650; Add 1247 1247 1278; Add 1276 1276 1688; Add 1247 1247 1276; Add 1484 1484 1332;
  Add 1224 1224 1206; Sub 1484 1484 1224; Add 1247 1247 1484; Sub 1115 1115 1247; Add 1115 1115 1400;
  Add 1661 1661 1460; Add 1375 1375 1320; Sub 1661 1661 1375; Add 1287 1287 1236; Add 1175 1175 1536;
  Add 1287 1287 1175; Add 1230 1230 1435; Add 1018 1018 1359; Sub 1230 1230 1018; Add 1287 1287 1230;
  Sub 1661 1661 1287; Add 1661 1661 1681; Add 1114 1114 1255; Add 1123 1123 1491; Sub 1114 1114 1123;
  Add 1391 1391 1330; Add 1219 1219 1459; Add 1391 1391 1219; Add 1341 1341 1598; Add 1546 1546 1132;
  Sub 1341 1341 1546; Add 1391 1391 1341; Sub 1114 1114 1391; Add 1114 1114 1252; Add 1510 1510 1189;
  Add 1169 1169 1266; Sub 1510 1510 1169; Add 1025 1025 1172; Add 1473 1473 1609; Add 1025 1025 1473;
  Add 1503 1503 1545; Add 1513 1513 1022; Sub 1503 1503 1513; Add 1025 1025 1503; Sub 1510 1510 1025;
  Add 1510 1510 1627; Add 1114 1114 1510; Add 1661 1661 1114; Add 1115 1115 1661; Add 1168 1168 1115;
  Mul 1168 216 1168; Mul 1627 780 1349; Sub 1168 1168 1627; Mul 1627 781 1656; Add 1639 1639 1519;
  Add 1552 1552 1094; Sub 1639 1639 1552; Sub 1549 1549 1639; Add 1199 1199 1047; Add 1577 1577 1674;
  Sub 1199 1199 1577; Add 1549 1549 1199; Sub 1549 1549 1624; Add 1202 1202 1646; Add 1647 1647 1075;
  Sub 1202 1202 1647; Add 1486 1486 1183; Add 1589 1589 1393; Add 1486 1486 1589; Add 1356 1356 1353;
  Add 1282 1282 1522; Sub 1356 1356 1282; Add 1486 1486 1356; Sub 1202 1202 1486; Sub 1202 1202 1263;
  Add 1354 1354 1364; Add 1585 1585 1699; Sub 1354 1354 1585; Add 1649 1649 1422].
Definition casadi_f0_377 : list instruction := [
  Add 1634 1634 1239; Add 1649 1649 1634; Add 1413 1413 1666; Add 1668 1668 1701; Sub 1413 1413 1668;
  Add 1649 1649 1413; Sub 1354 1354 1649; Sub 1354 1354 1488; Add 1620 1620 1062; Add 1533 1533 1671;
  Sub 1620 1620 1533; Add 1311 1311 1438; Add 1188 1188 1288; Add 1311 1311 1188; Add 1593 1593 1171;
  Add 1445 1445 1087; Sub 1593 1593 1445; Add 1311 1311 1593; Sub 1620 1620 1311; Sub 1620 1620 1455;
  Add 1218 1218 1517; Add 1559 1559 1451; Sub 1218 1218 1559; Add 1537 1537 1192; Add 1173 1173 1111;
  Add 1537 1537 1173; Add 1382 1382 1468; Add 1139 1139 1509; Sub 1382 1382 1139; Add 1537 1537 1382;
  Sub 1218 1218 1537; Sub 1218 1218 1161; Add 1620 1620 1218; Add 1354 1354 1620; Add 1202 1202 1354;
  Add 1549 1549 1202; Mul 1549 215 1549; Add 1627 1627 1549; Sub 1168 1168 1627; Sub 1256 1256 1185;
  Sub 1292 1292 1106; Sub 1191 1191 1090; Sub 1116 1116 1395; Sub 1140 1140 1193; Add 1116 1116 1140;
  Add 1191 1191 1116; Add 1292 1292 1191; Add 1256 1256 1292; Mul 1256 540 1256; Mul 1185 625 1556;
  Sub 1256 1256 1185; Mul 1185 651 1621; Sub 1540 1540 1483; Add 1664 1664 1146; Add 1527 1527 1088;
  Add 1613 1613 1399; Add 1378 1378 1458; Add 1613 1613 1378; Add 1527 1527 1613; Add 1664 1664 1527;
  Add 1540 1540 1664; Mul 1540 544 1540; Add 1185 1185 1540; Add 1256 1256 1185; Sub 1168 1168 1256;
  Mul 1168 0 1168; Mul 1256 23 1657; Add 1168 1168 1256; Mul 1081 508 1081; Mul 1256 534 1512;
  Add 1081 1081 1256; Add 1365 1365 1221; Mul 1402 482 1402; Mul 1419 511 1419; Add 1402 1402 1419;
  Sub 1365 1365 1402; Add 1694 1694 1365; Mul 1222 490 1222; Mul 1622 514 1622; Add 1222 1222 1622;
  Sub 1694 1694 1222; Add 1187 1187 1694; Mul 1479 498 1479; Mul 1036 518 1036; Add 1479 1479 1036;
  Sub 1187 1187 1479; Add 1548 1548 1187; Mul 1590 522 1590; Mul 1411 506 1411; Sub 1590 1590 1411;
  Sub 1548 1548 1590; Mul 1590 526 1548; Mul 1411 784 1673; Add 1590 1590 1411; Add 1243 1243 1602;
  Mul 1181 1304 1181; Add 1374 1374 1181; Mul 1374 20 1374; Add 1243 1243 1374; Add 1616 1616 1243;
  Mul 1016 1153 1016; Add 1554 1554 1016; Mul 1554 37 1554; Add 1616 1616 1554; Add 1367 1367 1616;
  Mul 1463 1212 1463; Add 1542 1542 1463; Mul 1542 80 1542; Add 1367 1367 1542; Add 1285 1285 1367;
  Mul 1436 1293 1436; Add 1672 1672 1436; Mul 1672 100 1672; Sub 1285 1285 1672; Mul 1285 536 1285;
  Mul 1672 496 1601; Add 1285 1285 1672; Add 1590 1590 1285; Sub 1081 1081 1590; Mul 1590 546 1496;
  Mul 1285 538 1021; Add 1590 1590 1285; Mul 1285 791 1489; Mul 1603 215 1603; Mul 1672 222 1656;
  Add 1603 1603 1672; Mul 1254 216 1254; Mul 1672 229 1349; Sub 1254 1254 1672; Sub 1603 1603 1254;
  Mul 1254 540 1142; Mul 1672 227 1556; Sub 1254 1254 1672; Mul 1672 544 1415; Mul 1542 219 1621;
  Add 1672 1672 1542; Sub 1254 1254 1672; Add 1603 1603 1254; Mul 1254 526 1532; Mul 1672 543 1673;
  Add 1254 1254 1672; Mul 1489 536 1489; Mul 1672 537 1601; Add 1489 1489 1672; Sub 1254 1254 1489;
  Sub 1254 1603 1254; Mul 1254 141 1254; Mul 1489 537 1254; Add 1285 1285 1489].
Definition casadi_f0_378 : list instruction := [
  Sub 1590 1590 1285; Add 1081 1081 1590; Mul 1590 556 1658; Mul 1423 560 1423; Add 1285 1590 1423;
  Sub 1561 1285 1561; Sub 1452 1482 1452; Sub 1526 1344 1526; Add 1452 1452 1526; Add 1423 1423 1590;
  Sub 1352 1352 1423; Add 1452 1452 1352; Sub 1561 1561 1452; Mul 1452 570 1308; Mul 1431 574 1431;
  Add 1352 1452 1431; Sub 1362 1352 1362; Sub 1128 1128 1284; Sub 1109 1109 1686; Add 1128 1128 1109;
  Add 1431 1431 1452; Sub 1474 1474 1431; Add 1128 1128 1474; Sub 1362 1362 1128; Mul 1128 584 1583;
  Mul 1297 588 1297; Add 1474 1128 1297; Sub 1625 1474 1625; Sub 1133 1133 1642; Sub 1607 1607 1439;
  Add 1133 1133 1607; Add 1297 1297 1128; Sub 1368 1368 1297; Add 1133 1133 1368; Sub 1625 1625 1133;
  Mul 1133 597 1555; Mul 1424 601 1424; Add 1368 1133 1424; Sub 1131 1368 1131; Sub 1271 1271 1325;
  Sub 1563 1563 1691; Add 1271 1271 1563; Add 1424 1424 1133; Sub 1409 1409 1424; Add 1271 1271 1409;
  Sub 1131 1131 1271; Mul 1271 610 1329; Mul 1154 614 1154; Add 1409 1271 1154; Sub 1440 1409 1440;
  Sub 1700 1700 1605; Sub 1588 1588 1541; Add 1700 1700 1588; Add 1154 1154 1271; Sub 1383 1383 1154;
  Add 1700 1700 1383; Sub 1440 1440 1700; Add 1131 1131 1440; Add 1625 1625 1131; Add 1362 1362 1625;
  Add 1561 1561 1362; Mul 1561 216 1561; Mul 1700 251 1349; Sub 1561 1561 1700; Mul 1700 230 1412;
  Mul 1604 225 1604; Add 1383 1700 1604; Mul 1343 231 1343; Mul 1271 223 1147; Sub 1343 1343 1271;
  Sub 1383 1383 1343; Mul 1434 560 1434; Mul 1271 553 1658; Add 1588 1434 1271; Mul 1539 244 1539;
  Mul 1695 248 1695; Add 1541 1539 1695; Sub 1588 1588 1541; Sub 1383 1383 1588; Mul 1658 558 1658;
  Mul 1337 560 1337; Add 1588 1658 1337; Mul 1042 243 1042; Mul 1576 249 1576; Add 1541 1042 1576;
  Sub 1588 1588 1541; Add 1383 1383 1588; Mul 1665 219 1665; Mul 1415 239 1415; Add 1665 1665 1415;
  Mul 1339 227 1339; Mul 1142 246 1142; Add 1339 1339 1142; Add 1665 1665 1339; Mul 1493 467 1493;
  Mul 1454 525 1454; Sub 1493 1493 1454; Add 1665 1665 1493; Mul 1675 231 1675; Mul 1493 559 1147;
  Sub 1675 1675 1493; Mul 1493 616 1412; Mul 1141 225 1141; Add 1493 1493 1141; Add 1675 1675 1493;
  Add 1665 1665 1675; Mul 1665 213 1665; Sub 1383 1383 1665; Mul 1675 572 1308; Mul 1228 574 1228;
  Add 1493 1675 1228; Mul 1584 284 1584; Mul 1283 258 1283; Add 1141 1584 1283; Sub 1493 1493 1141;
  Mul 1141 297 1389; Mul 1454 271 1645; Add 1339 1141 1454; Mul 1142 282 1055; Mul 1415 300 1097;
  Add 1588 1142 1415; Add 1339 1339 1588; Mul 1444 574 1444; Mul 1308 567 1308; Add 1588 1444 1308;
  Mul 1515 279 1515; Mul 1079 276 1079; Add 1541 1515 1079; Sub 1588 1588 1541; Add 1339 1339 1588;
  Sub 1493 1493 1339; Mul 1450 255 1450; Mul 1339 280 1338; Add 1450 1450 1339; Mul 1617 278 1617;
  Mul 1339 266 1573; Add 1617 1617 1339; Add 1450 1450 1617; Mul 1208 296 1208; Mul 1345 472 1345;
  Add 1208 1208 1345; Add 1450 1450 1208; Mul 1208 573 1097; Mul 1302 282 1302; Add 1208 1208 1302;
  Mul 1302 617 1389; Mul 1296 271 1296; Add 1302 1302 1296; Sub 1208 1208 1302].
Definition casadi_f0_379 : list instruction := [
  Add 1450 1450 1208; Mul 1450 213 1450; Sub 1493 1493 1450; Mul 1208 586 1583; Mul 1238 588 1238;
  Add 1302 1208 1238; Mul 1210 338 1210; Mul 1127 312 1127; Add 1296 1210 1127; Sub 1302 1302 1296;
  Mul 1296 351 1677; Mul 1345 325 1682; Add 1617 1296 1345; Mul 1339 336 1327; Mul 1588 354 1074;
  Add 1541 1339 1588; Add 1617 1617 1541; Mul 1235 588 1235; Mul 1583 581 1583; Add 1541 1235 1583;
  Mul 1495 333 1495; Mul 1318 330 1318; Add 1605 1495 1318; Sub 1541 1541 1605; Add 1617 1617 1541;
  Sub 1302 1302 1617; Mul 1335 309 1335; Mul 1617 334 1690; Add 1335 1335 1617; Mul 1398 332 1398;
  Mul 1617 320 1507; Add 1398 1398 1617; Add 1335 1335 1398; Mul 1340 349 1340; Mul 1679 474 1679;
  Add 1340 1340 1679; Add 1335 1335 1340; Mul 1340 587 1074; Mul 1456 336 1456; Add 1340 1340 1456;
  Mul 1456 619 1677; Mul 1275 325 1275; Add 1456 1456 1275; Sub 1340 1340 1456; Add 1335 1335 1340;
  Mul 1335 213 1335; Sub 1302 1302 1335; Mul 1340 599 1555; Mul 1394 601 1394; Add 1456 1340 1394;
  Mul 1643 393 1643; Mul 1581 366 1581; Add 1275 1643 1581; Sub 1456 1456 1275; Mul 1275 406 1237;
  Mul 1679 381 1481; Add 1398 1275 1679; Mul 1617 391 1635; Mul 1541 409 1586; Add 1605 1617 1541;
  Add 1398 1398 1605; Mul 1071 601 1071; Mul 1555 594 1555; Add 1605 1071 1555; Mul 1351 388 1351;
  Mul 1551 385 1551; Add 1133 1351 1551; Sub 1605 1605 1133; Add 1398 1398 1605; Sub 1456 1456 1398;
  Mul 1319 363 1319; Mul 1398 389 1550; Add 1319 1319 1398; Mul 1034 387 1034; Mul 1398 374 1156;
  Add 1034 1034 1398; Add 1319 1319 1034; Mul 1497 405 1497; Mul 1122 476 1122; Add 1497 1497 1122;
  Add 1319 1319 1497; Mul 1497 600 1586; Mul 1091 391 1091; Add 1497 1497 1091; Mul 1091 621 1237;
  Mul 1166 381 1166; Add 1091 1091 1166; Sub 1497 1497 1091; Add 1319 1319 1497; Mul 1319 213 1319;
  Sub 1456 1456 1319; Mul 1497 612 1329; Mul 1518 614 1518; Add 1091 1497 1518; Mul 1143 447 1143;
  Mul 1667 420 1667; Add 1166 1143 1667; Sub 1091 1091 1166; Mul 1166 460 1499; Mul 1122 434 1182;
  Add 1034 1166 1122; Mul 1398 445 1461; Mul 1605 463 1425; Add 1133 1398 1605; Add 1034 1034 1133;
  Mul 1618 614 1618; Mul 1329 607 1329; Add 1133 1618 1329; Mul 1469 442 1469; Mul 1523 439 1523;
  Add 1563 1469 1523; Sub 1133 1133 1563; Add 1034 1034 1133; Sub 1091 1091 1034; Mul 1034 417 1195;
  Mul 1133 443 1196; Add 1034 1034 1133; Mul 1133 441 1557; Mul 1563 426 1032; Add 1133 1133 1563;
  Add 1034 1034 1133; Mul 1133 459 1084; Mul 1360 478 1360; Add 1133 1133 1360; Add 1034 1034 1133;
  Mul 1133 611 1425; Mul 1316 445 1316; Add 1133 1133 1316; Mul 1316 623 1499; Mul 1269 434 1269;
  Add 1316 1316 1269; Sub 1133 1133 1316; Add 1034 1034 1133; Mul 1034 213 1034; Sub 1091 1091 1034;
  Add 1456 1456 1091; Add 1302 1302 1456; Add 1493 1493 1302; Add 1383 1383 1493; Mul 1383 215 1383;
  Mul 1133 470 1656; Add 1383 1383 1133; Sub 1561 1561 1383; Mul 1383 225 1112; Mul 1133 624 1412;
  Add 1316 1383 1133; Mul 1269 231 1465; Mul 1360 650 1147; Sub 1269 1269 1360].
Definition casadi_f0_380 : list instruction := [
  Sub 1316 1316 1269; Mul 1248 213 1248; Add 1360 1316 1248; Mul 1097 655 1097; Mul 1442 282 1442;
  Add 1563 1097 1442; Sub 1563 1384 1563; Mul 1373 271 1373; Mul 1389 629 1389; Add 1691 1373 1389;
  Add 1563 1563 1691; Mul 1157 213 1157; Sub 1691 1563 1157; Mul 1074 659 1074; Mul 1476 336 1476;
  Add 1325 1074 1476; Sub 1325 1104 1325; Mul 1644 325 1644; Mul 1677 634 1677; Add 1128 1644 1677;
  Add 1325 1325 1128; Mul 1529 213 1529; Sub 1128 1325 1529; Mul 1586 663 1586; Mul 1086 391 1086;
  Add 1607 1586 1086; Sub 1607 1151 1607; Mul 1190 381 1190; Mul 1237 639 1237; Add 1439 1190 1237;
  Add 1607 1607 1439; Mul 1103 213 1103; Sub 1439 1607 1103; Mul 1642 667 1425; Mul 1500 445 1500;
  Add 1452 1642 1500; Sub 1452 1369 1452; Mul 1464 434 1464; Mul 1109 644 1499; Add 1686 1464 1109;
  Add 1452 1452 1686; Mul 1137 213 1137; Sub 1686 1452 1137; Add 1439 1439 1686; Add 1128 1128 1439;
  Add 1691 1691 1128; Add 1360 1360 1691; Mul 1360 540 1360; Mul 1284 250 1556; Sub 1360 1360 1284;
  Mul 1465 225 1465; Mul 1412 650 1412; Add 1284 1465 1412; Mul 1112 231 1112; Mul 1147 624 1147;
  Sub 1112 1112 1147; Add 1412 1412 1465; Mul 1333 242 1333; Mul 1268 626 1268; Sub 1333 1333 1268;
  Add 1268 1412 1333; Add 1465 1112 1268; Sub 1465 1284 1465; Add 1284 1284 1333; Add 1112 1112 1284;
  Sub 1412 1412 1112; Sub 1465 1465 1412; Sub 1570 1570 1401; Sub 1272 1272 1295; Sub 1570 1570 1272;
  Sub 1386 1386 1347; Sub 1471 1471 1416; Sub 1386 1386 1471; Sub 1544 1544 1599; Sub 1144 1144 1280;
  Sub 1544 1544 1144; Sub 1321 1321 1102; Sub 1215 1215 1565; Sub 1321 1321 1215; Add 1544 1544 1321;
  Add 1386 1386 1544; Add 1570 1570 1386; Add 1465 1465 1570; Mul 1215 544 1465; Mul 1565 806 1621;
  Add 1215 1215 1565; Add 1360 1360 1215; Sub 1561 1561 1360; Add 1081 1081 1561; Mul 1081 216 1081;
  Mul 1561 652 1349; Sub 1081 1081 1561; Mul 1561 804 1656; Mul 1113 508 1113; Mul 1360 521 1512;
  Add 1113 1113 1360; Add 1150 1150 1181; Mul 1150 20 1150; Add 1229 1229 1363; Sub 1150 1150 1229;
  Sub 1179 1150 1179; Add 1125 1125 1016; Mul 1125 37 1125; Add 1179 1179 1125; Sub 1653 1179 1653;
  Add 1659 1659 1463; Mul 1659 80 1659; Add 1653 1653 1659; Add 1105 1105 1653; Sub 1017 1017 1436;
  Mul 1017 100 1017; Add 1105 1105 1017; Mul 1105 526 1105; Mul 1017 499 1673; Add 1105 1105 1017;
  Mul 1548 536 1548; Mul 1017 784 1601; Add 1548 1548 1017; Add 1105 1105 1548; Sub 1113 1113 1105;
  Mul 1532 791 1532; Mul 1254 543 1254; Add 1532 1532 1254; Mul 1496 539 1496; Mul 1254 538 1663;
  Add 1496 1496 1254; Sub 1532 1532 1496; Add 1113 1113 1532; Add 1604 1604 1700; Sub 1604 1604 1343;
  Add 1576 1576 1042; Add 1337 1337 1658; Sub 1576 1576 1337; Sub 1604 1604 1576; Add 1695 1695 1539;
  Add 1271 1271 1434; Sub 1695 1695 1271; Add 1604 1604 1695; Add 1604 1604 1665; Add 1079 1079 1515;
  Add 1308 1308 1444; Sub 1079 1079 1308; Add 1415 1415 1142; Add 1454 1454 1141; Add 1415 1415 1454;
  Add 1283 1283 1584; Add 1228 1228 1675; Sub 1283 1283 1228; Add 1415 1415 1283].
Definition casadi_f0_381 : list instruction := [
  Sub 1079 1079 1415; Add 1079 1079 1450; Add 1318 1318 1495; Add 1583 1583 1235; Sub 1318 1318 1583;
  Add 1588 1588 1339; Add 1345 1345 1296; Add 1588 1588 1345; Add 1127 1127 1210; Add 1238 1238 1208;
  Sub 1127 1127 1238; Add 1588 1588 1127; Sub 1318 1318 1588; Add 1318 1318 1335; Add 1551 1551 1351;
  Add 1555 1555 1071; Sub 1551 1551 1555; Add 1541 1541 1617; Add 1679 1679 1275; Add 1541 1541 1679;
  Add 1581 1581 1643; Add 1394 1394 1340; Sub 1581 1581 1394; Add 1541 1541 1581; Sub 1551 1551 1541;
  Add 1551 1551 1319; Add 1523 1523 1469; Add 1329 1329 1618; Sub 1523 1523 1329; Add 1605 1605 1398;
  Add 1122 1122 1166; Add 1605 1605 1122; Add 1667 1667 1143; Add 1518 1518 1497; Sub 1667 1667 1518;
  Add 1605 1605 1667; Sub 1523 1523 1605; Add 1523 1523 1034; Add 1551 1551 1523; Add 1318 1318 1551;
  Add 1079 1079 1318; Add 1604 1604 1079; Mul 1604 216 1604; Mul 1034 507 1349; Sub 1604 1604 1034;
  Add 1344 1344 1482; Sub 1423 1423 1427; Sub 1344 1344 1423; Sub 1652 1652 1285; Add 1344 1344 1652;
  Add 1406 1406 1641; Sub 1431 1431 1092; Sub 1406 1406 1431; Sub 1564 1564 1352; Add 1406 1406 1564;
  Add 1051 1051 1640; Sub 1297 1297 1130; Sub 1051 1051 1297; Sub 1388 1388 1474; Add 1051 1051 1388;
  Add 1387 1387 1149; Sub 1424 1424 1492; Sub 1387 1387 1424; Sub 1274 1274 1368; Add 1387 1387 1274;
  Add 1019 1019 1487; Sub 1154 1154 1305; Sub 1019 1019 1154; Sub 1696 1696 1409; Add 1019 1019 1696;
  Add 1387 1387 1019; Add 1051 1051 1387; Add 1406 1406 1051; Add 1344 1344 1406; Mul 1344 215 1344;
  Mul 1696 226 1656; Add 1344 1344 1696; Sub 1604 1604 1344; Sub 1284 1284 1268; Sub 1082 1082 1313;
  Sub 1631 1631 1520; Sub 1289 1289 1448; Sub 1233 1233 1204; Add 1289 1289 1233; Add 1631 1631 1289;
  Add 1082 1082 1631; Add 1284 1284 1082; Mul 1204 540 1284; Mul 1448 805 1556; Sub 1204 1204 1448;
  Add 1133 1133 1383; Sub 1269 1269 1133; Sub 1133 1269 1248; Add 1442 1442 1097; Add 1389 1389 1373;
  Add 1384 1384 1389; Sub 1442 1442 1384; Add 1384 1442 1157; Add 1476 1476 1074; Add 1677 1677 1644;
  Add 1104 1104 1677; Sub 1476 1476 1104; Add 1104 1476 1529; Add 1086 1086 1586; Add 1237 1237 1190;
  Add 1151 1151 1237; Sub 1086 1086 1151; Add 1151 1086 1103; Add 1500 1500 1642; Add 1109 1109 1464;
  Add 1369 1369 1109; Sub 1500 1500 1369; Add 1369 1500 1137; Add 1151 1151 1369; Add 1104 1104 1151;
  Add 1384 1384 1104; Add 1133 1133 1384; Mul 1133 544 1133; Mul 1109 693 1621; Add 1133 1133 1109;
  Add 1204 1204 1133; Sub 1604 1604 1204; Add 1113 1113 1604; Mul 1113 215 1113; Add 1561 1561 1113;
  Sub 1081 1081 1561; Sub 1316 1316 1248; Add 1563 1563 1157; Add 1325 1325 1529; Add 1607 1607 1103;
  Add 1452 1452 1137; Add 1607 1607 1452; Add 1325 1325 1607; Add 1563 1563 1325; Add 1316 1316 1563;
  Mul 1316 216 1316; Mul 1561 305 1349; Sub 1316 1316 1561; Mul 1284 215 1284; Mul 1561 805 1656;
  Add 1284 1284 1561; Sub 1316 1316 1284; Add 1021 1021 1316; Mul 1021 540 1021; Mul 1316 307 1556;
  Sub 1021 1021 1316; Mul 1316 360 1621; Mul 1465 216 1465; Mul 1284 806 1349].
Definition casadi_f0_382 : list instruction := [
  Sub 1465 1465 1284; Add 1269 1269 1248; Sub 1442 1442 1157; Sub 1476 1476 1529; Sub 1086 1086 1103;
  Sub 1500 1500 1137; Add 1086 1086 1500; Add 1476 1476 1086; Add 1442 1442 1476; Add 1269 1269 1442;
  Mul 1269 215 1269; Mul 1137 700 1656; Add 1269 1269 1137; Sub 1465 1465 1269; Add 1663 1663 1465;
  Mul 1663 544 1663; Add 1316 1316 1663; Add 1021 1021 1316; Sub 1081 1081 1021; Mul 1081 1 1081;
  Mul 1021 469 1505; Add 1081 1081 1021; Add 1168 1168 1081; Mul 1081 602 1187; Mul 1021 783 1572;
  Add 1081 1081 1021; Mul 1021 670 1367; Mul 1316 488 1480; Add 1021 1021 1316; Add 1081 1081 1021;
  Mul 1021 671 1203; Mul 1316 532 1257; Add 1021 1021 1316; Sub 1081 1081 1021; Mul 1021 679 1346;
  Mul 1316 523 1163; Add 1021 1021 1316; Mul 1316 796 1216; Mul 1338 680 1338; Mul 1663 255 1270;
  Add 1338 1338 1663; Mul 1573 674 1573; Mul 1663 278 1502; Sub 1573 1573 1663; Sub 1338 1338 1573;
  Mul 1611 216 1611; Mul 1573 294 1349; Sub 1611 1611 1573; Mul 1231 215 1231; Mul 1573 299 1656;
  Add 1231 1231 1573; Add 1611 1611 1231; Sub 1338 1338 1611; Mul 1611 670 1216; Mul 1231 502 1480;
  Add 1611 1611 1231; Mul 1231 602 1089; Mul 1573 505 1572; Add 1231 1231 1573; Sub 1611 1611 1231;
  Sub 1611 1338 1611; Mul 1611 672 1611; Mul 1231 502 1611; Add 1316 1316 1231; Sub 1021 1021 1316;
  Add 1081 1081 1021; Mul 1021 674 1691; Mul 1316 794 1502; Sub 1021 1021 1316; Mul 1316 680 1570;
  Mul 1231 689 1270; Add 1573 1316 1231; Add 1267 1267 1698; Add 1300 1300 1201; Add 1645 1645 1300;
  Sub 1267 1267 1645; Add 1645 1267 1146; Add 1205 1205 1447; Add 1167 1167 1281; Add 1682 1682 1167;
  Sub 1205 1205 1682; Add 1682 1205 1088; Add 1587 1587 1396; Add 1244 1244 1494; Add 1481 1481 1244;
  Sub 1587 1587 1481; Add 1481 1587 1399; Add 1355 1355 1176; Add 1449 1449 1348; Add 1182 1182 1449;
  Sub 1355 1355 1182; Add 1182 1355 1458; Add 1481 1481 1182; Add 1682 1682 1481; Add 1645 1645 1682;
  Mul 1645 676 1645; Mul 1449 410 1121; Add 1645 1645 1449; Sub 1573 1573 1645; Add 1021 1021 1573;
  Mul 1573 215 1493; Mul 1645 461 1656; Add 1573 1573 1645; Mul 1362 216 1362; Mul 1645 277 1349;
  Sub 1362 1362 1645; Sub 1573 1573 1362; Add 1021 1021 1573; Add 1081 1081 1021; Mul 1081 216 1081;
  Mul 1021 707 1349; Sub 1081 1081 1021; Mul 1021 793 1656; Mul 1573 602 1653; Mul 1645 491 1572;
  Add 1573 1573 1645; Mul 1645 670 1187; Mul 1449 783 1480; Add 1645 1645 1449; Add 1573 1573 1645;
  Mul 1645 671 1477; Mul 1449 517 1257; Add 1645 1645 1449; Sub 1573 1573 1645; Mul 1645 796 1089;
  Mul 1449 505 1611; Add 1645 1645 1449; Mul 1449 675 1346; Mul 1348 523 1575; Add 1449 1449 1348;
  Sub 1645 1645 1449; Add 1573 1573 1645; Mul 1645 674 1082; Mul 1449 682 1502; Sub 1645 1645 1449;
  Mul 1449 680 1384; Mul 1348 808 1270; Add 1449 1449 1348; Add 1380 1380 1606; Sub 1055 1055 1380;
  Add 1421 1421 1326; Add 1055 1055 1421; Sub 1421 1055 1106; Add 1376 1376 1225; Sub 1327 1327 1376;
  Add 1227 1227 1403; Add 1327 1327 1227; Sub 1227 1327 1090; Add 1253 1253 1317].
Definition casadi_f0_383 : list instruction := [
  Sub 1635 1635 1253; Add 1441 1441 1574; Add 1635 1635 1441; Sub 1441 1635 1395; Add 1687 1687 1597;
  Sub 1461 1461 1687; Add 1213 1213 1432; Add 1461 1461 1213; Sub 1213 1461 1193; Add 1441 1441 1213;
  Add 1227 1227 1441; Add 1421 1421 1227; Mul 1421 676 1421; Mul 1432 301 1121; Add 1421 1421 1432;
  Sub 1449 1449 1421; Add 1449 1645 1449; Mul 1406 215 1406; Mul 1421 303 1656; Add 1432 1406 1421;
  Mul 1687 216 1079; Mul 1597 468 1349; Sub 1687 1687 1597; Sub 1432 1432 1687; Add 1449 1449 1432;
  Add 1573 1573 1449; Mul 1573 215 1573; Add 1021 1021 1573; Sub 1573 1081 1021; Mul 1082 215 1082;
  Mul 1449 682 1656; Add 1432 1082 1449; Mul 1687 216 1563; Mul 1597 792 1349; Sub 1687 1687 1597;
  Sub 1432 1432 1687; Add 1163 1163 1432; Mul 1432 540 1163; Mul 1687 233 1556; Sub 1432 1432 1687;
  Mul 1687 789 1621; Mul 1597 215 1442; Mul 1574 686 1656; Add 1597 1597 1574; Mul 1570 216 1570;
  Mul 1574 689 1349; Sub 1570 1570 1574; Sub 1597 1597 1570; Add 1575 1575 1597; Mul 1597 544 1575;
  Add 1687 1687 1597; Add 1432 1432 1687; Sub 1573 1573 1432; Mul 1573 2 1573; Mul 1432 285 1110;
  Add 1573 1573 1432; Add 1168 1168 1573; Mul 1573 677 1543; Mul 1432 530 1417; Add 1573 1573 1432;
  Mul 1432 706 1694; Mul 1687 782 1693; Add 1432 1432 1687; Mul 1687 712 1616; Mul 1597 481 1595;
  Add 1687 1687 1597; Add 1432 1432 1687; Sub 1573 1573 1432; Mul 1432 719 1433; Mul 1687 519 1567;
  Add 1432 1432 1687; Mul 1687 709 1060; Mul 1242 216 1242; Mul 1597 348 1349; Sub 1242 1242 1597;
  Mul 1324 215 1324; Mul 1597 353 1656; Add 1324 1324 1597; Add 1242 1242 1324; Mul 1507 714 1507;
  Mul 1324 332 1251; Add 1507 1507 1324; Mul 1690 718 1690; Mul 1324 309 1310; Add 1690 1690 1324;
  Sub 1507 1507 1690; Add 1242 1242 1507; Mul 1507 706 1535; Mul 1690 497 1693; Add 1507 1507 1690;
  Mul 1690 712 1060; Mul 1324 494 1595; Add 1690 1690 1324; Sub 1507 1507 1690; Sub 1507 1242 1507;
  Mul 1507 156 1507; Mul 1690 494 1507; Add 1687 1687 1690; Sub 1432 1432 1687; Add 1573 1573 1432;
  Mul 1432 716 1682; Mul 1687 403 1093; Add 1432 1432 1687; Mul 1687 718 1386; Mul 1690 696 1310;
  Add 1324 1687 1690; Sub 1432 1432 1324; Mul 1324 714 1128; Mul 1597 797 1251; Add 1324 1324 1597;
  Sub 1432 1432 1324; Mul 1625 216 1625; Mul 1324 331 1349; Sub 1625 1625 1324; Mul 1324 215 1302;
  Mul 1597 414 1656; Add 1324 1324 1597; Sub 1324 1625 1324; Add 1432 1432 1324; Add 1573 1573 1432;
  Mul 1573 216 1573; Mul 1432 790 1349; Sub 1573 1573 1432; Mul 1432 704 1656; Mul 1324 677 1259;
  Mul 1597 513 1417; Add 1324 1324 1597; Mul 1597 706 1179; Mul 1574 483 1693; Add 1597 1597 1574;
  Mul 1574 712 1694; Mul 1253 782 1595; Add 1574 1574 1253; Add 1597 1597 1574; Sub 1324 1324 1597;
  Mul 1597 709 1535; Mul 1574 497 1507; Add 1597 1597 1574; Mul 1574 711 1433; Mul 1253 519 1525;
  Add 1574 1574 1253; Sub 1597 1597 1574; Add 1324 1324 1597; Mul 1597 716 1227; Mul 1574 293 1093;
  Add 1597 1597 1574; Mul 1574 718 1104; Mul 1253 415 1310; Add 1574 1574 1253].
Definition casadi_f0_384 : list instruction := [
  Sub 1597 1597 1574; Mul 1574 714 1631; Mul 1253 685 1251; Add 1317 1574 1253; Sub 1597 1597 1317;
  Mul 1317 216 1318; Mul 1403 416 1349; Sub 1317 1317 1403; Mul 1051 215 1051; Mul 1403 357 1656;
  Add 1376 1051 1403; Sub 1317 1317 1376; Add 1597 1597 1317; Add 1324 1324 1597; Mul 1324 215 1324;
  Add 1432 1432 1324; Sub 1324 1573 1432; Mul 1597 216 1325; Mul 1317 795 1349; Sub 1597 1597 1317;
  Mul 1631 215 1631; Mul 1317 685 1656; Add 1376 1631 1317; Sub 1597 1597 1376; Add 1567 1567 1597;
  Mul 1597 540 1567; Mul 1376 697 1556; Sub 1597 1597 1376; Mul 1376 695 1621; Mul 1386 216 1386;
  Mul 1225 696 1349; Sub 1386 1386 1225; Mul 1225 215 1476; Mul 1326 448 1656; Add 1225 1225 1326;
  Sub 1225 1386 1225; Add 1525 1525 1225; Mul 1225 544 1525; Add 1376 1376 1225; Add 1597 1597 1376;
  Sub 1597 1324 1597; Mul 1597 3 1597; Mul 1376 691 1207; Add 1597 1597 1376; Add 1168 1168 1597;
  Mul 1597 715 1365; Mul 1376 606 1107; Add 1597 1597 1376; Mul 1376 721 1243; Mul 1225 786 1312;
  Add 1376 1376 1225; Add 1597 1597 1376; Mul 1376 722 1660; Mul 1225 528 1120; Add 1376 1376 1225;
  Add 1597 1597 1376; Mul 1376 730 1370; Mul 1225 515 1467; Add 1376 1376 1225; Mul 1225 683 1651;
  Mul 1309 310 1309; Mul 1326 408 1475; Add 1309 1309 1326; Mul 1301 327 1301; Mul 1326 404 1571;
  Add 1301 1301 1326; Sub 1309 1309 1301; Mul 1550 731 1550; Mul 1301 363 1303; Add 1550 1550 1301;
  Mul 1156 725 1156; Mul 1301 387 1538; Add 1156 1156 1301; Sub 1550 1550 1156; Add 1309 1309 1550;
  Mul 1550 721 1651; Mul 1156 486 1312; Add 1550 1550 1156; Mul 1156 715 1315; Mul 1301 489 1107;
  Add 1156 1156 1301; Sub 1550 1550 1156; Sub 1550 1309 1550; Mul 1550 723 1550; Mul 1156 486 1550;
  Add 1225 1225 1156; Sub 1376 1376 1225; Add 1597 1597 1376; Mul 1376 725 1439; Mul 1225 800 1538;
  Add 1376 1376 1225; Mul 1225 731 1544; Mul 1156 703 1303; Add 1301 1225 1156; Mul 1326 727 1481;
  Mul 1380 306 1261; Add 1326 1326 1380; Add 1301 1301 1326; Add 1376 1376 1301; Mul 1301 310 1456;
  Mul 1326 361 1475; Add 1301 1301 1326; Mul 1131 327 1131; Mul 1326 386 1571; Add 1380 1131 1326;
  Mul 1606 318 1114; Mul 1348 59 1096; Add 1606 1606 1348; Add 1380 1380 1606; Add 1301 1301 1380;
  Sub 1376 1376 1301; Add 1597 1597 1376; Mul 1376 216 1597; Mul 1301 690 1349; Sub 1376 1376 1301;
  Mul 1301 807 1656; Mul 1380 715 1150; Mul 1606 705 1107; Add 1380 1380 1606; Mul 1606 721 1365;
  Mul 1348 606 1312; Add 1606 1606 1348; Add 1380 1380 1606; Mul 1606 722 1350; Mul 1348 510 1120;
  Add 1606 1606 1348; Add 1380 1380 1606; Mul 1606 683 1315; Mul 1348 489 1550; Add 1606 1606 1348;
  Mul 1348 726 1370; Mul 1176 515 1511; Add 1348 1348 1176; Sub 1606 1606 1348; Add 1380 1380 1606;
  Mul 1606 725 1289; Mul 1348 692 1538; Add 1176 1606 1348; Mul 1244 731 1151; Mul 1494 465 1303;
  Add 1244 1244 1494; Mul 1494 727 1441; Mul 1396 785 1261; Add 1494 1494 1396; Add 1244 1244 1494;
  Add 1176 1176 1244; Mul 1387 310 1387; Mul 1244 412 1475; Add 1494 1387 1244].
Definition casadi_f0_385 : list instruction := [
  Mul 1396 327 1551; Mul 1167 407 1571; Add 1396 1396 1167; Mul 1167 318 1620; Mul 1281 580 1096;
  Add 1167 1167 1281; Add 1396 1396 1167; Add 1494 1494 1396; Sub 1176 1176 1494; Add 1380 1380 1176;
  Mul 1176 215 1380; Add 1301 1301 1176; Sub 1176 1376 1301; Mul 1289 310 1289; Mul 1494 692 1475;
  Add 1396 1289 1494; Mul 1167 327 1607; Mul 1281 798 1571; Add 1167 1167 1281; Mul 1281 318 1116;
  Mul 1447 640 1096; Add 1281 1281 1447; Add 1167 1167 1281; Add 1396 1396 1167; Sub 1467 1467 1396;
  Mul 1396 540 1467; Mul 1167 811 1556; Sub 1396 1396 1167; Mul 1167 813 1621; Mul 1281 310 1086;
  Mul 1447 464 1475; Add 1281 1281 1447; Mul 1544 327 1544; Mul 1447 703 1571; Add 1300 1544 1447;
  Mul 1201 318 1613; Mul 1698 662 1096; Add 1201 1201 1698; Add 1300 1300 1201; Add 1281 1281 1300;
  Sub 1511 1511 1281; Mul 1281 544 1511; Add 1167 1167 1281; Add 1396 1396 1167; Sub 1396 1176 1396;
  Mul 1396 4 1396; Mul 1167 812 1418; Add 1396 1396 1167; Add 1168 1168 1396; Mul 1396 728 1221;
  Mul 1167 609 1279; Add 1396 1396 1167; Mul 1167 733 1602; Mul 1281 604 1628; Add 1167 1167 1281;
  Add 1396 1396 1167; Mul 1167 734 1557; Mul 1281 426 1162; Add 1167 1167 1281; Add 1396 1396 1167;
  Mul 1167 739 1358; Mul 1281 438 1506; Add 1167 1167 1281; Mul 1281 816 1425; Mul 1298 358 1298;
  Mul 1300 462 1245; Add 1298 1298 1300; Mul 1134 372 1134; Mul 1300 458 1291; Add 1134 1134 1300;
  Sub 1298 1298 1134; Mul 1196 741 1196; Mul 1134 417 1241; Add 1196 1196 1134; Mul 1032 736 1032;
  Mul 1134 441 1636; Add 1032 1032 1134; Sub 1196 1196 1032; Add 1298 1298 1196; Mul 1196 733 1425;
  Mul 1032 445 1628; Add 1196 1196 1032; Mul 1032 728 1499; Mul 1134 434 1279; Add 1032 1032 1134;
  Sub 1196 1196 1032; Sub 1298 1298 1196; Mul 1298 430 1298; Mul 1196 445 1298; Add 1281 1281 1196;
  Sub 1167 1167 1281; Add 1396 1396 1167; Mul 1167 736 1686; Mul 1281 803 1636; Add 1167 1167 1281;
  Mul 1281 741 1321; Mul 1196 710 1241; Add 1032 1281 1196; Mul 1134 738 1182; Mul 1300 356 1633;
  Add 1134 1134 1300; Add 1032 1032 1134; Add 1167 1167 1032; Mul 1032 358 1091; Mul 1134 352 1245;
  Add 1032 1032 1134; Mul 1440 372 1440; Mul 1134 440 1291; Add 1300 1440 1134; Mul 1201 369 1510;
  Mul 1698 36 1466; Add 1201 1201 1698; Add 1300 1300 1201; Add 1032 1032 1300; Sub 1167 1167 1032;
  Add 1396 1396 1167; Mul 1167 216 1396; Mul 1032 814 1349; Sub 1167 1167 1032; Mul 1032 817 1656;
  Mul 1279 13 1279; Mul 1300 728 1363; Sub 1279 1279 1300; Mul 1300 733 1221; Mul 1628 609 1628;
  Add 1300 1300 1628; Add 1279 1279 1300; Mul 1300 734 1195; Mul 1162 443 1162; Add 1300 1300 1162;
  Add 1279 1279 1300; Mul 1300 816 1499; Mul 1162 434 1298; Add 1300 1300 1162; Mul 1162 735 1358;
  Mul 1628 438 1180; Add 1162 1162 1628; Sub 1300 1300 1162; Add 1279 1279 1300; Mul 1300 736 1233;
  Mul 1162 699 1636; Add 1628 1300 1162; Mul 1201 741 1369; Mul 1698 394 1241; Add 1201 1201 1698;
  Mul 1698 738 1213; Mul 1663 245 1633; Add 1698 1698 1663; Add 1201 1201 1698].
Definition casadi_f0_386 : list instruction := [
  Add 1628 1628 1201; Mul 1019 358 1019; Mul 1201 466 1245; Add 1698 1019 1201; Mul 1663 372 1523;
  Mul 1465 359 1291; Add 1663 1663 1465; Mul 1465 369 1218; Mul 1269 593 1466; Add 1465 1465 1269;
  Add 1663 1663 1465; Add 1698 1698 1663; Sub 1628 1628 1698; Add 1279 1279 1628; Mul 1628 215 1279;
  Add 1032 1032 1628; Sub 1628 1167 1032; Mul 1233 358 1233; Mul 1698 699 1245; Add 1663 1233 1698;
  Mul 1465 372 1452; Mul 1269 801 1291; Add 1465 1465 1269; Mul 1269 369 1140; Mul 1137 645 1466;
  Add 1269 1269 1137; Add 1465 1465 1269; Add 1663 1663 1465; Sub 1506 1506 1663; Mul 1663 540 1506;
  Mul 1465 820 1556; Sub 1663 1663 1465; Mul 1465 822 1621; Mul 1269 358 1500; Mul 1137 457 1245;
  Add 1269 1269 1137; Mul 1321 372 1321; Mul 1137 710 1291; Add 1103 1321 1137; Mul 1529 369 1378;
  Mul 1157 666 1466; Add 1529 1529 1157; Add 1103 1103 1529; Add 1269 1269 1103; Sub 1180 1180 1269;
  Mul 1269 544 1180; Add 1465 1465 1269; Add 1663 1663 1465; Sub 1663 1628 1663; Mul 1663 5 1663;
  Mul 1465 821 1676; Add 1663 1663 1465; Add 1168 1168 1663; Mul 1322 85 1322; Mul 1648 79 1648;
  Sub 1322 1322 1648; Mul 1240 54 1240; Mul 1119 61 1119; Sub 1240 1240 1119; Mul 1076 19 1076;
  Mul 1119 763 1083; Sub 1076 1076 1119; Mul 1119 751 1165; Mul 1407 35 1407; Add 1119 1119 1407;
  Sub 1076 1076 1119; Mul 1692 55 1692; Mul 1211 62 1211; Sub 1692 1692 1211; Add 1076 1076 1692;
  Add 1240 1240 1076; Mul 1145 86 1145; Mul 1232 91 1232; Sub 1145 1145 1232; Add 1145 1240 1145;
  Add 1322 1322 1145; Mul 1470 102 1470; Sub 1470 1322 1470; Mul 1164 101 1164; Add 1470 1470 1164;
  Add 1168 1168 1470; Mul 1470 777 1168; Sub 1323 1323 1470; Add 1217 1217 1323; Div 1323 1683 92;
  Mul 1470 1023 1024; Sub 1323 1323 1470; Mul 1470 767 1323; Mul 1292 674 1292; Mul 1164 630 1502;
  Sub 1292 1292 1164; Mul 1164 654 1270; Mul 1664 680 1664; Add 1164 1164 1664; Add 1372 1372 1038;
  Sub 1164 1164 1372; Add 1292 1292 1164; Mul 1164 615 1656; Mul 1202 215 1202; Add 1164 1164 1202;
  Mul 1115 216 1115; Mul 1202 7 1349; Sub 1115 1115 1202; Sub 1164 1164 1115; Add 1292 1292 1164;
  Mul 1292 0 1292; Mul 1164 771 1657; Add 1292 1292 1164; Mul 1164 748 1453; Mul 1115 216 1346;
  Mul 1202 523 1349; Sub 1115 1115 1202; Add 1115 1502 1115; Mul 1115 672 1115; Mul 1202 545 1115;
  Sub 1164 1164 1202; Mul 1202 216 1216; Mul 1372 502 1349; Sub 1202 1202 1372; Mul 1372 215 1089;
  Mul 1038 505 1656; Add 1372 1372 1038; Add 1202 1202 1372; Sub 1202 1202 1121; Mul 1202 672 1202;
  Mul 1372 504 1202; Mul 1038 750 1603; Add 1372 1372 1038; Mul 1038 215 1346; Mul 1664 523 1656;
  Add 1038 1038 1664; Sub 1038 1270 1038; Mul 1038 672 1038; Mul 1664 541 1038; Mul 1145 627 1528;
  Add 1664 1664 1145; Sub 1372 1372 1664; Add 1164 1164 1372; Mul 1477 215 1477; Mul 1372 517 1656;
  Add 1477 1477 1372; Mul 1203 216 1203; Mul 1372 532 1349; Sub 1203 1203 1372; Sub 1477 1477 1203;
  Mul 1203 627 1216; Mul 1372 502 1038; Add 1203 1203 1372; Mul 1372 748 1089].
Definition casadi_f0_387 : list instruction := [
  Mul 1664 505 1115; Sub 1372 1372 1664; Sub 1203 1203 1372; Add 1477 1477 1203; Mul 1477 508 1477;
  Mul 1203 744 1512; Add 1477 1477 1203; Mul 1203 215 1187; Mul 1372 783 1656; Add 1203 1203 1372;
  Mul 1367 216 1367; Mul 1372 488 1349; Sub 1367 1367 1372; Sub 1203 1203 1367; Mul 1367 748 1346;
  Mul 1115 523 1115; Sub 1367 1367 1115; Mul 1216 750 1216; Mul 1115 502 1202; Add 1216 1216 1115;
  Sub 1367 1367 1216; Add 1203 1203 1367; Mul 1203 536 1203; Mul 1367 824 1601; Add 1203 1203 1367;
  Sub 1477 1477 1203; Mul 1653 215 1653; Mul 1203 491 1656; Add 1653 1653 1203; Mul 1187 216 1187;
  Mul 1203 783 1349; Sub 1187 1187 1203; Sub 1653 1653 1187; Mul 1089 750 1089; Mul 1202 505 1202;
  Add 1089 1089 1202; Mul 1346 627 1346; Mul 1038 523 1038; Add 1346 1346 1038; Sub 1089 1089 1346;
  Add 1653 1653 1089; Mul 1653 526 1653; Mul 1089 825 1673; Add 1653 1653 1089; Sub 1477 1477 1653;
  Add 1164 1164 1477; Mul 1563 674 1563; Mul 1477 792 1502; Sub 1563 1563 1477; Add 1231 1231 1316;
  Mul 1316 298 1121; Sub 1267 1267 1146; Sub 1205 1205 1088; Sub 1587 1587 1399; Sub 1355 1355 1458;
  Add 1587 1587 1355; Add 1205 1205 1587; Add 1267 1267 1205; Mul 1458 676 1267; Add 1316 1316 1458;
  Sub 1231 1231 1316; Add 1563 1563 1231; Mul 1231 468 1656; Mul 1079 215 1079; Add 1231 1231 1079;
  Sub 1231 1231 1362; Add 1563 1563 1231; Mul 1563 216 1563; Mul 1231 823 1349; Sub 1563 1563 1231;
  Mul 1231 686 1270; Mul 1442 680 1442; Add 1231 1231 1442; Mul 1442 232 1121; Add 1055 1055 1106;
  Add 1327 1327 1090; Add 1635 1635 1395; Add 1461 1461 1193; Add 1635 1635 1461; Add 1327 1327 1635;
  Add 1055 1055 1327; Mul 1193 676 1055; Add 1442 1442 1193; Sub 1231 1231 1442; Add 1645 1645 1231;
  Add 1421 1421 1406; Mul 1493 216 1493; Mul 1406 461 1349; Sub 1493 1493 1406; Sub 1421 1421 1493;
  Add 1645 1645 1421; Mul 1645 215 1645; Mul 1421 668 1656; Add 1645 1645 1421; Sub 1563 1563 1645;
  Add 1449 1449 1082; Mul 1691 216 1691; Mul 1082 794 1349; Sub 1691 1691 1082; Sub 1449 1449 1691;
  Mul 1449 540 1449; Mul 1691 664 1556; Sub 1449 1449 1691; Mul 1691 808 1656; Mul 1384 215 1384;
  Add 1691 1691 1384; Sub 1691 1691 1570; Mul 1691 544 1691; Mul 1570 642 1621; Add 1691 1691 1570;
  Add 1449 1449 1691; Sub 1563 1563 1449; Add 1164 1164 1563; Mul 1164 1 1164; Mul 1563 760 1505;
  Add 1164 1164 1563; Add 1292 1292 1164; Mul 1163 674 1163; Mul 1164 233 1502; Sub 1163 1163 1164;
  Mul 1164 789 1270; Mul 1575 680 1575; Add 1164 1164 1575; Mul 1575 637 1121; Mul 1055 215 1055;
  Mul 1563 232 1656; Add 1055 1055 1563; Mul 1267 216 1267; Mul 1563 298 1349; Sub 1267 1267 1563;
  Sub 1055 1055 1267; Add 1611 1611 1055; Mul 1611 676 1611; Add 1575 1575 1611; Sub 1164 1164 1575;
  Add 1163 1163 1164; Sub 1021 1021 1081; Add 1163 1163 1021; Mul 1163 2 1163; Mul 1021 826 1110;
  Add 1163 1163 1021; Add 1292 1292 1163; Mul 1163 674 1567; Mul 1021 697 1502; Sub 1163 1163 1021;
  Mul 1021 695 1270; Mul 1081 680 1525; Add 1021 1021 1081; Mul 1081 647 1121].
Definition casadi_f0_388 : list instruction := [
  Mul 1164 216 1205; Mul 1575 411 1349; Sub 1164 1164 1575; Mul 1575 215 1327; Mul 1611 302 1656;
  Add 1575 1575 1611; Sub 1164 1164 1575; Add 1507 1507 1164; Mul 1164 676 1507; Add 1081 1081 1164;
  Sub 1021 1021 1081; Add 1163 1163 1021; Sub 1432 1432 1573; Add 1163 1163 1432; Mul 1163 3 1163;
  Mul 1432 347 1207; Add 1163 1163 1432; Add 1292 1292 1163; Mul 1163 674 1467; Mul 1432 811 1502;
  Sub 1163 1163 1432; Mul 1432 813 1270; Mul 1573 680 1511; Add 1432 1432 1573; Mul 1573 802 1121;
  Mul 1021 310 1635; Mul 1081 252 1475; Add 1021 1021 1081; Mul 1081 327 1587; Mul 1164 339 1571;
  Add 1081 1081 1164; Mul 1443 318 1443; Mul 1164 701 1096; Add 1575 1443 1164; Add 1081 1081 1575;
  Add 1021 1021 1081; Sub 1550 1550 1021; Mul 1021 676 1550; Add 1573 1573 1021; Sub 1432 1432 1573;
  Add 1163 1163 1432; Sub 1301 1301 1376; Add 1163 1163 1301; Mul 1163 4 1163; Mul 1301 698 1418;
  Add 1163 1163 1301; Add 1292 1292 1163; Mul 1163 674 1506; Mul 1301 820 1502; Sub 1163 1163 1301;
  Mul 1301 822 1270; Mul 1376 680 1180; Add 1301 1301 1376; Mul 1376 788 1121; Mul 1432 358 1461;
  Mul 1573 234 1245; Add 1432 1432 1573; Mul 1573 372 1355; Mul 1021 355 1291; Add 1573 1573 1021;
  Mul 1608 369 1608; Mul 1021 708 1466; Add 1081 1608 1021; Add 1573 1573 1081; Add 1432 1432 1573;
  Sub 1298 1298 1432; Mul 1432 676 1298; Add 1376 1376 1432; Sub 1301 1301 1376; Add 1163 1163 1301;
  Sub 1032 1032 1167; Add 1163 1163 1032; Mul 1163 5 1163; Mul 1032 809 1676; Add 1163 1163 1032;
  Add 1292 1292 1163; Sub 1322 1322 1292; Mul 1292 778 1322; Add 1470 1470 1292; Sub 1217 1217 1470;
  Div 1470 1028 92; Mul 1292 1516 1024; Sub 1470 1470 1292; Mul 1292 775 1470; Add 1410 1410 1124;
  Mul 1124 658 1310; Mul 1527 718 1527; Add 1124 1124 1527; Sub 1410 1410 1124; Mul 1124 635 1251;
  Mul 1191 714 1191; Add 1124 1124 1191; Sub 1410 1410 1124; Mul 1661 216 1661; Mul 1124 90 1349;
  Sub 1661 1661 1124; Mul 1124 566 1656; Mul 1354 215 1354; Add 1124 1124 1354; Sub 1661 1661 1124;
  Add 1410 1410 1661; Mul 1410 0 1410; Mul 1661 818 1657; Add 1410 1410 1661; Mul 1661 216 1433;
  Mul 1124 519 1349; Sub 1661 1661 1124; Sub 1661 1661 1251; Mul 1661 156 1661; Mul 1124 545 1661;
  Mul 1354 684 1453; Add 1124 1124 1354; Mul 1354 216 1060; Mul 1191 494 1349; Sub 1354 1354 1191;
  Mul 1191 215 1535; Mul 1527 497 1656; Add 1191 1191 1527; Add 1354 1354 1191; Sub 1354 1093 1354;
  Mul 1354 156 1354; Mul 1191 504 1354; Mul 1527 660 1603; Add 1191 1191 1527; Mul 1527 215 1433;
  Mul 1163 519 1656; Add 1527 1527 1163; Sub 1527 1527 1310; Mul 1527 156 1527; Mul 1163 541 1527;
  Mul 1032 827 1528; Add 1163 1163 1032; Sub 1191 1191 1163; Add 1124 1124 1191; Mul 1543 216 1543;
  Mul 1191 530 1349; Sub 1543 1543 1191; Mul 1259 215 1259; Mul 1191 513 1656; Add 1259 1259 1191;
  Sub 1543 1543 1259; Mul 1259 827 1060; Mul 1191 494 1527; Add 1259 1259 1191; Mul 1191 684 1535;
  Mul 1163 497 1661; Add 1191 1191 1163; Sub 1259 1259 1191; Add 1543 1543 1259].
Definition casadi_f0_389 : list instruction := [
  Mul 1259 508 1543; Mul 1191 656 1512; Add 1259 1259 1191; Mul 1616 216 1616; Mul 1191 481 1349;
  Sub 1616 1616 1191; Mul 1191 215 1694; Mul 1163 782 1656; Add 1191 1191 1163; Sub 1616 1616 1191;
  Mul 1191 684 1433; Mul 1163 519 1661; Add 1191 1191 1163; Mul 1060 660 1060; Mul 1163 494 1354;
  Add 1060 1060 1163; Sub 1191 1191 1060; Add 1616 1616 1191; Mul 1191 536 1616; Mul 1060 829 1601;
  Add 1191 1191 1060; Sub 1259 1259 1191; Mul 1694 216 1694; Mul 1191 782 1349; Sub 1694 1694 1191;
  Mul 1179 215 1179; Mul 1191 483 1656; Add 1179 1179 1191; Sub 1694 1694 1179; Mul 1535 660 1535;
  Mul 1179 497 1354; Add 1535 1535 1179; Mul 1433 827 1433; Mul 1179 519 1527; Add 1433 1433 1179;
  Sub 1535 1535 1433; Add 1694 1694 1535; Mul 1535 526 1694; Mul 1433 830 1673; Add 1535 1535 1433;
  Sub 1259 1259 1535; Add 1124 1124 1259; Mul 1259 411 1093; Mul 1205 716 1205; Add 1259 1259 1205;
  Add 1690 1690 1687; Sub 1259 1259 1690; Mul 1690 795 1251; Mul 1325 714 1325; Add 1690 1690 1325;
  Sub 1259 1259 1690; Mul 1690 416 1656; Mul 1318 215 1318; Add 1690 1690 1318; Sub 1625 1625 1690;
  Add 1259 1259 1625; Mul 1259 216 1259; Mul 1625 828 1349; Sub 1259 1259 1625; Mul 1625 302 1093;
  Mul 1327 716 1327; Add 1625 1625 1327; Mul 1327 448 1310; Mul 1476 718 1476; Add 1327 1327 1476;
  Sub 1625 1625 1327; Add 1253 1253 1574; Sub 1625 1625 1253; Mul 1302 216 1302; Mul 1253 414 1349;
  Sub 1302 1302 1253; Add 1403 1403 1051; Sub 1302 1302 1403; Add 1625 1625 1302; Mul 1625 215 1625;
  Mul 1302 832 1656; Add 1625 1625 1302; Sub 1302 1259 1625; Mul 1128 216 1128; Mul 1403 797 1349;
  Sub 1128 1128 1403; Add 1317 1317 1631; Sub 1128 1128 1317; Mul 1317 540 1128; Mul 1631 835 1556;
  Sub 1317 1317 1631; Mul 1631 415 1656; Mul 1104 215 1104; Add 1631 1631 1104; Sub 1386 1386 1631;
  Mul 1631 544 1386; Mul 1104 837 1621; Add 1631 1631 1104; Add 1317 1317 1631; Sub 1302 1302 1317;
  Add 1124 1124 1302; Mul 1124 1 1124; Mul 1302 632 1505; Add 1124 1124 1302; Add 1410 1410 1124;
  Mul 1661 678 1661; Mul 1124 684 1258; Add 1661 1661 1124; Mul 1527 673 1527; Mul 1124 827 1361;
  Add 1527 1527 1124; Mul 1354 799 1354; Mul 1124 660 1338; Add 1354 1354 1124; Add 1527 1527 1354;
  Add 1661 1661 1527; Mul 1694 602 1694; Mul 1527 830 1572; Add 1694 1694 1527; Mul 1616 670 1616;
  Mul 1527 829 1480; Add 1616 1616 1527; Mul 1543 671 1543; Mul 1527 656 1257; Add 1543 1543 1527;
  Sub 1616 1616 1543; Add 1694 1694 1616; Add 1661 1661 1694; Mul 1128 674 1128; Mul 1694 835 1502;
  Sub 1128 1128 1694; Mul 1386 680 1386; Mul 1694 837 1270; Add 1386 1386 1694; Mul 1682 216 1682;
  Mul 1694 403 1349; Sub 1682 1682 1694; Mul 1694 293 1656; Mul 1227 215 1227; Add 1694 1694 1227;
  Sub 1682 1682 1694; Mul 1682 676 1682; Mul 1694 839 1121; Add 1682 1682 1694; Sub 1386 1386 1682;
  Add 1128 1128 1386; Sub 1625 1625 1259; Add 1128 1128 1625; Add 1661 1661 1128; Mul 1661 2 1661;
  Mul 1128 834 1110; Add 1661 1661 1128; Add 1410 1410 1661; Mul 1661 647 1093].
Definition casadi_f0_390 : list instruction := [
  Mul 1507 716 1507; Add 1661 1661 1507; Mul 1507 695 1310; Mul 1525 718 1525; Add 1507 1507 1525;
  Sub 1661 1661 1507; Mul 1507 697 1251; Mul 1567 714 1567; Add 1507 1507 1567; Sub 1661 1661 1507;
  Add 1661 1661 1324; Mul 1661 3 1661; Mul 1324 836 1207; Add 1661 1661 1324; Add 1410 1410 1661;
  Mul 1661 802 1093; Mul 1324 716 1550; Add 1661 1661 1324; Mul 1324 813 1310; Mul 1507 718 1511;
  Add 1324 1324 1507; Sub 1661 1661 1324; Mul 1324 811 1251; Mul 1507 714 1467; Add 1324 1324 1507;
  Sub 1661 1661 1324; Add 1661 1661 1176; Mul 1661 4 1661; Mul 1176 702 1418; Add 1661 1661 1176;
  Add 1410 1410 1661; Mul 1661 788 1093; Mul 1176 716 1298; Add 1661 1661 1176; Mul 1176 822 1310;
  Mul 1324 718 1180; Add 1176 1176 1324; Sub 1661 1661 1176; Mul 1176 820 1251; Mul 1324 714 1506;
  Add 1176 1176 1324; Sub 1661 1661 1176; Add 1661 1661 1628; Mul 1661 5 1661; Mul 1628 810 1676;
  Add 1661 1661 1628; Add 1410 1410 1661; Add 1410 1410 1240; Mul 1240 769 1410; Sub 1292 1292 1240;
  Add 1217 1217 1292; Div 1292 1508 92; Mul 1240 1637 1024; Sub 1292 1292 1240; Mul 1240 815 1292;
  Mul 1661 640 1538; Mul 1116 725 1116; Add 1661 1661 1116; Mul 1116 662 1303; Mul 1613 731 1613;
  Add 1116 1116 1613; Add 1223 1223 1504; Add 1116 1116 1223; Add 1661 1661 1116; Mul 1116 580 1475;
  Mul 1620 310 1620; Add 1116 1116 1620; Mul 1620 59 1571; Mul 1114 327 1114; Add 1620 1620 1114;
  Add 1152 1152 1457; Add 1620 1620 1152; Add 1116 1116 1620; Sub 1661 1661 1116; Mul 1661 0 1661;
  Mul 1116 819 1657; Add 1661 1661 1116; Mul 1116 327 1370; Mul 1620 515 1571; Add 1116 1116 1620;
  Mul 1620 318 1315; Mul 1152 489 1096; Add 1620 1620 1152; Sub 1116 1116 1620; Sub 1116 1538 1116;
  Mul 1116 723 1116; Mul 1620 545 1116; Mul 1152 831 1453; Add 1620 1620 1152; Mul 1152 310 1315;
  Mul 1457 489 1475; Add 1152 1152 1457; Mul 1457 327 1651; Mul 1114 486 1571; Add 1457 1457 1114;
  Sub 1152 1152 1457; Sub 1152 1261 1152; Mul 1152 723 1152; Mul 1457 504 1152; Mul 1114 840 1603;
  Add 1457 1457 1114; Mul 1114 318 1651; Mul 1223 486 1096; Add 1114 1114 1223; Mul 1223 310 1370;
  Mul 1504 515 1475; Add 1223 1223 1504; Sub 1114 1114 1223; Sub 1114 1303 1114; Mul 1114 723 1114;
  Mul 1223 541 1114; Mul 1504 842 1528; Add 1223 1223 1504; Sub 1457 1457 1223; Add 1620 1620 1457;
  Mul 1457 842 1651; Mul 1223 486 1114; Add 1457 1457 1223; Mul 1223 831 1315; Mul 1504 489 1116;
  Add 1223 1223 1504; Sub 1457 1457 1223; Mul 1223 310 1350; Mul 1504 510 1475; Add 1223 1223 1504;
  Mul 1504 327 1660; Mul 1613 528 1571; Add 1504 1504 1613; Add 1223 1223 1504; Mul 1118 318 1118;
  Mul 1504 479 1096; Add 1118 1118 1504; Add 1223 1223 1118; Sub 1457 1457 1223; Mul 1223 508 1457;
  Mul 1118 841 1512; Add 1223 1223 1118; Mul 1118 831 1370; Mul 1504 515 1116; Add 1118 1118 1504;
  Mul 1651 840 1651; Mul 1504 486 1152; Add 1651 1651 1504; Sub 1118 1118 1651; Mul 1651 310 1365;
  Mul 1504 606 1475; Add 1651 1651 1504; Mul 1243 327 1243; Mul 1504 786 1571].
Definition casadi_f0_391 : list instruction := [
  Add 1243 1243 1504; Add 1651 1651 1243; Mul 1660 318 1660; Mul 1243 528 1096; Add 1660 1660 1243;
  Add 1651 1651 1660; Sub 1118 1118 1651; Mul 1651 536 1118; Mul 1660 844 1601; Add 1651 1651 1660;
  Sub 1223 1223 1651; Mul 1315 840 1315; Mul 1651 489 1152; Add 1315 1315 1651; Mul 1370 842 1370;
  Mul 1651 515 1114; Add 1370 1370 1651; Sub 1315 1315 1370; Mul 1150 310 1150; Mul 1370 705 1475;
  Add 1150 1150 1370; Mul 1365 327 1365; Mul 1370 606 1571; Add 1365 1365 1370; Add 1150 1150 1365;
  Mul 1350 318 1350; Mul 1365 510 1096; Add 1350 1350 1365; Add 1150 1150 1350; Sub 1315 1315 1150;
  Mul 1150 526 1315; Mul 1350 845 1673; Add 1150 1150 1350; Sub 1223 1223 1150; Add 1620 1620 1223;
  Add 1494 1494 1289; Mul 1289 800 1571; Mul 1439 327 1439; Add 1289 1289 1439; Mul 1439 643 1096;
  Mul 1108 318 1108; Add 1439 1439 1108; Add 1289 1289 1439; Add 1494 1494 1289; Mul 1289 540 1494;
  Mul 1439 843 1556; Sub 1289 1289 1439; Mul 1439 465 1475; Mul 1151 310 1151; Add 1439 1439 1151;
  Add 1447 1447 1544; Mul 1544 665 1096; Mul 1478 318 1478; Add 1544 1544 1478; Add 1447 1447 1544;
  Add 1439 1439 1447; Mul 1447 544 1439; Mul 1544 847 1621; Add 1447 1447 1544; Add 1289 1289 1447;
  Mul 1447 798 1538; Mul 1607 725 1607; Add 1447 1447 1607; Add 1156 1156 1225; Mul 1225 339 1261;
  Mul 1587 727 1587; Add 1225 1225 1587; Add 1156 1156 1225; Add 1447 1447 1156; Mul 1156 407 1475;
  Mul 1551 310 1551; Add 1156 1156 1551; Add 1326 1326 1131; Mul 1131 595 1096; Mul 1209 318 1209;
  Add 1131 1131 1209; Add 1326 1326 1131; Add 1156 1156 1326; Sub 1447 1447 1156; Mul 1447 216 1447;
  Mul 1156 848 1349; Sub 1447 1447 1156; Add 1348 1348 1606; Mul 1606 464 1303; Mul 1086 731 1086;
  Add 1606 1606 1086; Mul 1086 252 1261; Mul 1635 727 1635; Add 1086 1086 1635; Add 1606 1606 1086;
  Add 1348 1348 1606; Add 1244 1244 1387; Mul 1387 361 1571; Mul 1456 327 1456; Add 1387 1387 1456;
  Mul 1456 620 1096; Mul 1277 318 1277; Add 1456 1456 1277; Add 1387 1387 1456; Add 1244 1244 1387;
  Sub 1348 1348 1244; Mul 1348 215 1348; Mul 1244 850 1656; Add 1348 1348 1244; Sub 1244 1447 1348;
  Add 1289 1289 1244; Add 1620 1620 1289; Mul 1620 1 1620; Mul 1289 838 1505; Add 1620 1620 1289;
  Add 1661 1661 1620; Mul 1620 678 1116; Mul 1289 831 1258; Add 1620 1620 1289; Mul 1289 673 1114;
  Mul 1387 842 1361; Add 1289 1289 1387; Mul 1387 799 1152; Mul 1456 840 1338; Add 1387 1387 1456;
  Add 1289 1289 1387; Add 1620 1620 1289; Mul 1289 602 1315; Mul 1387 845 1572; Add 1289 1289 1387;
  Mul 1387 670 1118; Mul 1456 844 1480; Add 1387 1387 1456; Mul 1456 671 1457; Mul 1277 841 1257;
  Add 1456 1456 1277; Sub 1387 1387 1456; Add 1289 1289 1387; Add 1620 1620 1289; Mul 1289 785 1475;
  Mul 1441 310 1441; Add 1289 1289 1441; Mul 1441 306 1571; Mul 1481 327 1481; Add 1441 1441 1481;
  Add 1164 1164 1443; Add 1441 1441 1164; Add 1289 1289 1441; Mul 1441 676 1289; Mul 1164 853 1121;
  Add 1441 1441 1164; Mul 1164 680 1439; Mul 1443 847 1270; Add 1164 1164 1443].
Definition casadi_f0_392 : list instruction := [
  Sub 1441 1441 1164; Mul 1164 674 1494; Mul 1443 843 1502; Sub 1164 1164 1443; Sub 1441 1441 1164;
  Sub 1348 1348 1447; Add 1441 1441 1348; Add 1620 1620 1441; Mul 1620 2 1620; Mul 1441 846 1110;
  Add 1620 1620 1441; Add 1661 1661 1620; Mul 1116 717 1116; Mul 1620 831 1689; Add 1116 1116 1620;
  Mul 1152 787 1152; Mul 1620 840 1242; Add 1152 1152 1620; Mul 1114 713 1114; Mul 1620 842 1501;
  Add 1114 1114 1620; Sub 1152 1152 1114; Add 1116 1116 1152; Mul 1457 677 1457; Mul 1152 841 1417;
  Add 1457 1457 1152; Mul 1118 712 1118; Mul 1152 844 1595; Add 1118 1118 1152; Sub 1457 1457 1118;
  Mul 1315 706 1315; Mul 1118 845 1693; Add 1315 1315 1118; Sub 1457 1457 1315; Add 1116 1116 1457;
  Mul 1494 714 1494; Mul 1457 843 1251; Add 1494 1494 1457; Mul 1439 718 1439; Mul 1457 847 1310;
  Add 1439 1439 1457; Mul 1289 716 1289; Mul 1457 853 1093; Add 1289 1289 1457; Sub 1439 1439 1289;
  Add 1494 1494 1439; Add 1494 1494 1244; Add 1116 1116 1494; Mul 1116 3 1116; Mul 1494 854 1207;
  Add 1116 1116 1494; Add 1661 1661 1116; Mul 1116 811 1538; Mul 1467 725 1467; Add 1116 1116 1467;
  Mul 1467 813 1303; Mul 1511 731 1511; Add 1467 1467 1511; Mul 1511 802 1261; Mul 1550 727 1550;
  Add 1511 1511 1550; Add 1467 1467 1511; Add 1116 1116 1467; Mul 1467 807 1475; Mul 1380 310 1380;
  Add 1467 1467 1380; Mul 1380 690 1571; Mul 1597 327 1597; Add 1380 1380 1597; Mul 1597 720 1096;
  Mul 1654 318 1654; Add 1597 1597 1654; Add 1380 1380 1597; Add 1467 1467 1380; Sub 1116 1116 1467;
  Mul 1116 4 1116; Mul 1467 851 1418; Add 1116 1116 1467; Add 1661 1661 1116; Mul 1116 820 1538;
  Mul 1467 725 1506; Add 1116 1116 1467; Mul 1467 822 1303; Mul 1380 731 1180; Add 1467 1467 1380;
  Mul 1380 788 1261; Mul 1597 727 1298; Add 1380 1380 1597; Add 1467 1467 1380; Add 1116 1116 1467;
  Mul 1467 817 1475; Mul 1380 310 1279; Add 1467 1467 1380; Mul 1380 814 1571; Mul 1597 327 1396;
  Add 1380 1380 1597; Mul 1597 732 1096; Mul 1654 318 1177; Add 1597 1597 1654; Add 1380 1380 1597;
  Add 1467 1467 1380; Sub 1116 1116 1467; Mul 1116 5 1116; Mul 1467 852 1676; Add 1116 1116 1467;
  Add 1661 1661 1116; Sub 1655 1655 1661; Mul 1661 761 1655; Add 1240 1240 1661; Add 1217 1217 1240;
  Div 1240 1035 92; Mul 1661 1619 1024; Sub 1240 1240 1661; Mul 1661 833 1240; Mul 1116 645 1636;
  Mul 1140 736 1140; Add 1116 1116 1140; Mul 1140 666 1241; Mul 1378 741 1378; Add 1140 1140 1378;
  Add 1052 1052 1200; Add 1140 1140 1052; Add 1116 1116 1140; Mul 1140 593 1245; Mul 1218 358 1218;
  Add 1140 1140 1218; Mul 1218 36 1291; Mul 1510 372 1510; Add 1218 1218 1510; Add 1684 1684 1129;
  Add 1218 1218 1684; Add 1140 1140 1218; Sub 1116 1116 1140; Mul 1140 0 1116; Mul 1657 849 1657;
  Add 1140 1140 1657; Mul 1657 372 1358; Mul 1218 438 1291; Add 1657 1657 1218; Mul 1218 369 1499;
  Mul 1684 434 1466; Add 1218 1218 1684; Sub 1657 1657 1218; Sub 1657 1636 1657; Mul 1657 430 1657;
  Mul 1218 545 1657; Mul 1453 856 1453; Add 1218 1218 1453; Mul 1453 358 1499].
Definition casadi_f0_393 : list instruction := [
  Mul 1684 434 1245; Add 1453 1453 1684; Mul 1684 372 1425; Mul 1129 445 1291; Add 1684 1684 1129;
  Sub 1453 1453 1684; Sub 1453 1633 1453; Mul 1453 430 1453; Mul 1684 504 1453; Mul 1603 858 1603;
  Add 1684 1684 1603; Mul 1603 369 1425; Mul 1129 445 1466; Add 1603 1603 1129; Mul 1129 358 1358;
  Mul 1510 438 1245; Add 1129 1129 1510; Sub 1603 1603 1129; Sub 1603 1241 1603; Mul 1603 430 1603;
  Mul 1129 541 1603; Mul 1528 860 1528; Add 1129 1129 1528; Sub 1684 1684 1129; Add 1218 1218 1684;
  Mul 1684 860 1425; Mul 1129 445 1603; Add 1684 1684 1129; Mul 1129 856 1499; Mul 1528 434 1657;
  Add 1129 1129 1528; Sub 1684 1684 1129; Mul 1129 358 1195; Mul 1528 443 1245; Add 1129 1129 1528;
  Mul 1528 372 1557; Mul 1510 426 1291; Add 1528 1528 1510; Add 1129 1129 1528; Mul 1084 369 1084;
  Mul 1528 478 1466; Add 1084 1084 1528; Add 1129 1129 1084; Sub 1684 1684 1129; Mul 1129 508 1684;
  Mul 1512 859 1512; Add 1129 1129 1512; Mul 1512 856 1358; Mul 1084 438 1657; Add 1512 1512 1084;
  Mul 1425 858 1425; Mul 1084 445 1453; Add 1425 1425 1084; Sub 1512 1512 1425; Mul 1425 358 1221;
  Mul 1084 609 1245; Add 1425 1425 1084; Mul 1602 372 1602; Mul 1084 604 1291; Add 1602 1602 1084;
  Add 1425 1425 1602; Mul 1557 369 1557; Mul 1602 426 1466; Add 1557 1557 1602; Add 1425 1425 1557;
  Sub 1512 1512 1425; Mul 1425 536 1512; Mul 1601 862 1601; Add 1425 1425 1601; Sub 1129 1129 1425;
  Mul 1499 858 1499; Mul 1425 434 1453; Add 1499 1499 1425; Mul 1358 860 1358; Mul 1425 438 1603;
  Add 1358 1358 1425; Sub 1499 1499 1358; Mul 1358 13 1245; Mul 1363 358 1363; Sub 1358 1358 1363;
  Mul 1221 372 1221; Mul 1363 609 1291; Add 1221 1221 1363; Add 1358 1358 1221; Mul 1195 369 1195;
  Mul 1221 443 1466; Add 1195 1195 1221; Add 1358 1358 1195; Sub 1499 1499 1358; Mul 1358 526 1499;
  Mul 1673 863 1673; Add 1358 1358 1673; Sub 1129 1129 1358; Add 1218 1218 1129; Add 1698 1698 1233;
  Mul 1233 803 1291; Mul 1686 372 1686; Add 1233 1233 1686; Mul 1686 648 1466; Mul 1558 369 1558;
  Add 1686 1686 1558; Add 1233 1233 1686; Add 1698 1698 1233; Mul 1233 540 1698; Mul 1556 861 1556;
  Sub 1233 1233 1556; Mul 1556 394 1245; Mul 1369 358 1369; Add 1556 1556 1369; Add 1137 1137 1321;
  Mul 1321 669 1466; Mul 1314 369 1314; Add 1321 1321 1314; Add 1137 1137 1321; Add 1556 1556 1137;
  Mul 1137 544 1556; Mul 1621 865 1621; Add 1137 1137 1621; Add 1233 1233 1137; Mul 1137 801 1636;
  Mul 1452 736 1452; Add 1137 1137 1452; Add 1196 1196 1281; Mul 1281 355 1633; Mul 1355 738 1355;
  Add 1281 1281 1355; Add 1196 1196 1281; Add 1137 1137 1196; Mul 1196 359 1245; Mul 1523 358 1523;
  Add 1196 1196 1523; Add 1134 1134 1440; Mul 1440 608 1466; Mul 1547 369 1547; Add 1440 1440 1547;
  Add 1134 1134 1440; Add 1196 1196 1134; Sub 1137 1137 1196; Mul 1196 216 1137; Mul 1349 866 1349;
  Sub 1196 1196 1349; Add 1162 1162 1300; Mul 1300 457 1241; Mul 1500 741 1500; Add 1300 1300 1500;
  Mul 1500 234 1633; Mul 1461 738 1461; Add 1500 1500 1461; Add 1300 1300 1500].
Definition casadi_f0_394 : list instruction := [
  Add 1162 1162 1300; Add 1201 1201 1019; Mul 1019 352 1291; Mul 1091 372 1091; Add 1019 1019 1091;
  Mul 1091 622 1466; Mul 1662 369 1662; Add 1091 1091 1662; Add 1019 1019 1091; Add 1201 1201 1019;
  Sub 1162 1162 1201; Mul 1201 215 1162; Mul 1656 868 1656; Add 1201 1201 1656; Sub 1656 1196 1201;
  Add 1233 1233 1656; Add 1218 1218 1233; Mul 1218 1 1218; Mul 1505 857 1505; Add 1218 1218 1505;
  Add 1140 1140 1218; Mul 1218 678 1657; Mul 1258 856 1258; Add 1218 1218 1258; Mul 1258 673 1603;
  Mul 1361 860 1361; Add 1258 1258 1361; Mul 1361 799 1453; Mul 1338 858 1338; Add 1361 1361 1338;
  Add 1258 1258 1361; Add 1218 1218 1258; Mul 1258 602 1499; Mul 1572 863 1572; Add 1258 1258 1572;
  Mul 1572 670 1512; Mul 1480 862 1480; Add 1572 1572 1480; Mul 1480 671 1684; Mul 1257 859 1257;
  Add 1480 1480 1257; Sub 1572 1572 1480; Add 1258 1258 1572; Add 1218 1218 1258; Mul 1258 245 1245;
  Mul 1213 358 1213; Add 1258 1258 1213; Mul 1213 356 1291; Mul 1182 372 1182; Add 1213 1213 1182;
  Add 1021 1021 1608; Add 1213 1213 1021; Add 1258 1258 1213; Mul 1213 676 1258; Mul 1121 871 1121;
  Add 1213 1213 1121; Mul 1121 680 1556; Mul 1270 865 1270; Add 1121 1121 1270; Sub 1213 1213 1121;
  Mul 1121 674 1698; Mul 1502 861 1502; Sub 1121 1121 1502; Sub 1213 1213 1121; Sub 1201 1201 1196;
  Add 1213 1213 1201; Add 1218 1218 1213; Mul 1218 2 1218; Mul 1110 864 1110; Add 1218 1218 1110;
  Add 1140 1140 1218; Mul 1218 717 1657; Mul 1689 856 1689; Add 1218 1218 1689; Mul 1689 787 1453;
  Mul 1242 858 1242; Add 1689 1689 1242; Mul 1242 713 1603; Mul 1501 860 1501; Add 1242 1242 1501;
  Sub 1689 1689 1242; Add 1218 1218 1689; Mul 1689 677 1684; Mul 1417 859 1417; Add 1689 1689 1417;
  Mul 1417 712 1512; Mul 1595 862 1595; Add 1417 1417 1595; Sub 1689 1689 1417; Mul 1417 706 1499;
  Mul 1693 863 1693; Add 1417 1417 1693; Sub 1689 1689 1417; Add 1218 1218 1689; Mul 1689 714 1698;
  Mul 1251 861 1251; Add 1689 1689 1251; Mul 1251 718 1556; Mul 1310 865 1310; Add 1251 1251 1310;
  Mul 1310 716 1258; Mul 1093 871 1093; Add 1310 1310 1093; Sub 1251 1251 1310; Add 1689 1689 1251;
  Add 1689 1689 1656; Add 1218 1218 1689; Mul 1218 3 1218; Mul 1207 872 1207; Add 1218 1218 1207;
  Add 1140 1140 1218; Mul 1657 729 1657; Mul 1697 856 1697; Add 1657 1657 1697; Mul 1603 724 1603;
  Mul 1582 860 1582; Add 1603 1603 1582; Mul 1453 688 1453; Mul 1309 858 1309; Add 1453 1453 1309;
  Add 1603 1603 1453; Add 1657 1657 1603; Mul 1499 715 1499; Mul 1107 863 1107; Add 1499 1499 1107;
  Mul 1512 721 1512; Mul 1312 862 1312; Add 1512 1512 1312; Mul 1684 722 1684; Mul 1120 859 1120;
  Add 1684 1684 1120; Add 1512 1512 1684; Add 1499 1499 1512; Add 1657 1657 1499; Mul 1698 725 1698;
  Mul 1538 861 1538; Add 1698 1698 1538; Mul 1556 731 1556; Mul 1303 865 1303; Add 1556 1556 1303;
  Mul 1258 727 1258; Mul 1261 871 1261; Add 1258 1258 1261; Add 1556 1556 1258; Add 1698 1698 1556;
  Mul 1162 310 1162; Mul 1475 868 1475; Add 1162 1162 1475; Mul 1137 327 1137].
Definition casadi_f0_395 : list instruction := [
  Mul 1571 866 1571; Add 1137 1137 1571; Mul 1116 318 1116; Mul 1096 849 1096; Add 1116 1116 1096;
  Add 1137 1137 1116; Add 1162 1162 1137; Add 1698 1698 1162; Sub 1657 1657 1698; Mul 1657 4 1657;
  Mul 1418 869 1418; Add 1657 1657 1418; Add 1140 1140 1657; Mul 1636 820 1636; Mul 1506 736 1506;
  Add 1636 1636 1506; Mul 1241 822 1241; Mul 1180 741 1180; Add 1241 1241 1180; Mul 1633 788 1633;
  Mul 1298 738 1298; Add 1633 1633 1298; Add 1241 1241 1633; Add 1636 1636 1241; Mul 1245 817 1245;
  Mul 1279 358 1279; Add 1245 1245 1279; Mul 1291 814 1291; Mul 1396 372 1396; Add 1291 1291 1396;
  Mul 1466 732 1466; Mul 1177 369 1177; Add 1466 1466 1177; Add 1291 1291 1466; Add 1245 1245 1291;
  Sub 1636 1636 1245; Mul 1636 5 1636; Mul 1676 870 1676; Add 1636 1636 1676; Add 1140 1140 1636;
  Sub 1246 1246 1140; Mul 1140 754 1246; Add 1661 1661 1140; Add 1217 1217 1661; Mul 1661 210 1035;
  Mul 1140 200 1159; Add 1661 1661 1140; Mul 1385 19 1385; Mul 1140 196 1083; Sub 1385 1385 1140;
  Mul 1140 189 1165; Mul 1612 35 1612; Sub 1140 1140 1612; Sub 1385 1385 1140; Mul 1594 55 1594;
  Mul 1524 62 1524; Add 1594 1594 1524; Add 1385 1385 1594; Mul 1290 86 1290; Mul 1498 91 1498;
  Add 1290 1290 1498; Add 1290 1385 1290; Mul 1531 102 1531; Sub 1531 1290 1531; Mul 1498 777 1531;
  Mul 1594 209 1420; Add 1498 1498 1594; Add 1661 1661 1498; Mul 1498 778 1290; Mul 1594 867 1323;
  Add 1498 1498 1594; Add 1661 1661 1498; Mul 1498 769 1385; Mul 1594 855 1470; Add 1498 1498 1594;
  Add 1661 1661 1498; Mul 1498 761 1135; Mul 1594 201 1292; Add 1498 1498 1594; Sub 1661 1661 1498;
  Mul 1498 873 1240; Add 1661 1661 1498; Mul 1498 1006 1661; Mul 1594 210 1661; Mul 1524 756 1159;
  Add 1594 1594 1524; Sub 1035 1035 1594; Mul 1594 881 1035; Mul 1524 210 1307; Mul 1140 143 1159;
  Add 1524 1524 1140; Sub 1377 1377 1148; Sub 1234 1234 1126; Mul 1234 37 1234; Add 1377 1377 1234;
  Sub 1591 1591 1462; Mul 1591 80 1591; Add 1591 1377 1591; Sub 1592 1592 1514; Mul 1592 100 1592;
  Add 1592 1591 1592; Mul 1048 1064 1048; Mul 1562 1061 1562; Add 1048 1048 1562; Mul 1048 141 1048;
  Add 1592 1592 1048; Mul 1048 777 1592; Mul 1562 876 1420; Add 1048 1048 1562; Add 1524 1524 1048;
  Mul 1158 151 1158; Mul 1392 103 1392; Add 1158 1158 1392; Mul 1020 148 1020; Mul 1053 105 1053;
  Add 1020 1020 1053; Sub 1158 1158 1020; Sub 1158 1158 1591; Mul 1485 102 1485; Sub 1485 1158 1485;
  Mul 1591 778 1485; Mul 1020 153 1323; Add 1591 1591 1020; Sub 1524 1524 1591; Mul 1077 1057 1077;
  Mul 1568 1065 1568; Sub 1077 1077 1568; Mul 1077 156 1077; Add 1377 1377 1077; Mul 1408 86 1408;
  Mul 1578 91 1578; Sub 1408 1408 1578; Add 1408 1377 1408; Mul 1521 102 1521; Sub 1521 1408 1521;
  Mul 1578 769 1521; Mul 1077 171 1470; Add 1578 1578 1077; Add 1524 1524 1578; Mul 1165 180 1165;
  Mul 1265 35 1265; Add 1165 1165 1265; Mul 1490 19 1490; Mul 1083 182 1083; Sub 1490 1490 1083;
  Sub 1165 1165 1490; Mul 1136 55 1136; Add 1165 1165 1136; Mul 1174 86 1174].
Definition casadi_f0_396 : list instruction := [
  Mul 1117 91 1117; Add 1174 1174 1117; Add 1174 1165 1174; Mul 1678 102 1678; Sub 1678 1174 1678;
  Mul 1117 761 1678; Mul 1136 188 1292; Add 1117 1117 1136; Add 1524 1524 1117; Mul 1117 754 1531;
  Mul 1136 209 1240; Add 1117 1117 1136; Add 1524 1524 1117; Mul 1117 210 1524; Mul 1136 875 1159;
  Add 1117 1117 1136; Sub 1307 1307 1117; Div 1117 1307 65; Mul 1307 89 1307; Mul 1136 777 1524;
  Mul 1490 875 1420; Add 1136 1136 1490; Sub 1592 1592 1136; Mul 1136 58 1592; Add 1307 1307 1136;
  Mul 1136 778 1524; Mul 1490 875 1323; Add 1136 1136 1490; Add 1136 1485 1136; Mul 1490 45 1136;
  Add 1307 1307 1490; Mul 1490 769 1524; Mul 1083 875 1470; Add 1490 1490 1083; Sub 1490 1521 1490;
  Mul 1083 22 1490; Add 1307 1307 1083; Mul 1083 761 1524; Mul 1265 875 1292; Add 1083 1083 1265;
  Sub 1083 1678 1083; Mul 1265 879 1083; Add 1307 1307 1265; Mul 1265 754 1524; Mul 1578 875 1240;
  Add 1265 1265 1578; Sub 1265 1531 1265; Mul 1578 880 1265; Add 1307 1307 1578; Div 1307 1307 1045;
  Mul 1578 1078 1307; Sub 1117 1117 1578; Mul 1578 874 1117; Add 1594 1594 1578; Mul 1578 777 1661;
  Mul 1077 756 1420; Add 1578 1578 1077; Sub 1531 1531 1578; Mul 1578 884 1531; Div 1592 1592 65;
  Mul 1077 1029 1307; Sub 1592 1592 1077; Mul 1077 883 1592; Add 1578 1578 1077; Add 1594 1594 1578;
  Mul 1578 778 1661; Mul 1077 756 1323; Add 1578 1578 1077; Sub 1578 1578 1290; Mul 1077 886 1578;
  Div 1136 1136 65; Mul 1568 1063 1307; Sub 1136 1136 1568; Mul 1568 885 1136; Add 1077 1077 1568;
  Add 1594 1594 1077; Mul 1077 769 1661; Mul 1568 756 1470; Add 1077 1077 1568; Sub 1077 1385 1077;
  Mul 1568 888 1077; Div 1490 1490 65; Mul 1591 1040 1307; Sub 1490 1490 1591; Mul 1591 887 1490;
  Add 1568 1568 1591; Add 1594 1594 1568; Mul 1568 761 1661; Mul 1591 756 1292; Add 1568 1568 1591;
  Add 1568 1135 1568; Mul 1591 890 1568; Div 1083 1083 65; Mul 1020 1027 1307; Sub 1083 1083 1020;
  Mul 1020 889 1083; Add 1591 1591 1020; Sub 1594 1594 1591; Div 1265 1265 65; Mul 1591 1046 1307;
  Sub 1265 1265 1591; Mul 1591 891 1265; Mul 1661 754 1661; Mul 1020 756 1240; Add 1661 1661 1020;
  Mul 1020 892 1661; Sub 1591 1591 1020; Add 1594 1594 1591; Mul 1591 881 1594; Mul 1020 882 1117;
  Add 1591 1591 1020; Sub 1035 1035 1591; Mul 1591 884 1594; Mul 1020 882 1592; Add 1591 1591 1020;
  Sub 1531 1531 1591; Mul 1591 910 1531; Mul 1020 777 1485; Mul 1053 153 1420; Add 1020 1020 1053;
  Mul 1053 210 1683; Mul 1392 154 1159; Add 1053 1053 1392; Sub 1020 1020 1053; Mul 1053 778 1158;
  Mul 1392 106 1323; Add 1053 1053 1392; Add 1020 1020 1053; Mul 1053 769 1408; Mul 1392 877 1470;
  Add 1053 1053 1392; Sub 1020 1020 1053; Mul 1053 761 1174; Mul 1392 94 1292; Add 1053 1053 1392;
  Sub 1020 1020 1053; Mul 1053 754 1290; Mul 1392 867 1240; Add 1053 1053 1392; Sub 1020 1020 1053;
  Mul 1053 777 1020; Mul 1392 895 1420; Add 1053 1053 1392; Sub 1485 1485 1053; Mul 1053 884 1485;
  Mul 1392 896 1592; Add 1053 1053 1392; Mul 1392 210 1020; Mul 1048 895 1159].
Definition casadi_f0_397 : list instruction := [
  Add 1392 1392 1048; Add 1683 1683 1392; Mul 1392 881 1683; Mul 1048 898 1117; Add 1392 1392 1048;
  Sub 1053 1053 1392; Mul 1392 778 1020; Mul 1048 895 1323; Add 1392 1392 1048; Sub 1392 1392 1158;
  Mul 1158 886 1392; Mul 1048 899 1136; Add 1158 1158 1048; Add 1053 1053 1158; Mul 1158 769 1020;
  Mul 1048 895 1470; Add 1158 1158 1048; Add 1158 1408 1158; Mul 1048 888 1158; Mul 1562 900 1490;
  Add 1048 1048 1562; Sub 1053 1053 1048; Mul 1048 761 1020; Mul 1562 895 1292; Add 1048 1048 1562;
  Add 1048 1174 1048; Mul 1562 890 1048; Mul 1514 901 1083; Add 1562 1562 1514; Sub 1053 1053 1562;
  Mul 1562 754 1020; Mul 1514 895 1240; Add 1562 1562 1514; Add 1290 1290 1562; Mul 1562 892 1290;
  Mul 1514 902 1265; Add 1562 1562 1514; Sub 1053 1053 1562; Mul 1562 884 1053; Mul 1514 897 1592;
  Add 1562 1562 1514; Sub 1485 1485 1562; Div 1562 1485 905; Mul 1514 881 1053; Mul 1462 897 1117;
  Add 1514 1514 1462; Add 1683 1683 1514; Mul 1514 904 1683; Mul 1485 903 1485; Add 1514 1514 1485;
  Mul 1485 886 1053; Mul 1462 897 1136; Add 1485 1485 1462; Sub 1392 1392 1485; Mul 1485 906 1392;
  Add 1514 1514 1485; Mul 1485 888 1053; Mul 1462 897 1490; Add 1485 1485 1462; Add 1158 1158 1485;
  Mul 1485 907 1158; Add 1514 1514 1485; Mul 1485 890 1053; Mul 1462 897 1083; Add 1485 1485 1462;
  Add 1048 1048 1485; Mul 1485 908 1048; Add 1514 1514 1485; Mul 1485 892 1053; Mul 1462 897 1265;
  Add 1485 1485 1462; Add 1290 1290 1485; Mul 1485 909 1290; Add 1514 1514 1485; Div 1514 1514 1067;
  Mul 1485 1214 1514; Sub 1562 1562 1485; Mul 1485 894 1562; Add 1591 1591 1485; Mul 1485 912 1035;
  Div 1683 1683 905; Mul 1462 1614 1514; Sub 1683 1683 1462; Mul 1462 893 1683; Add 1485 1485 1462;
  Sub 1591 1591 1485; Mul 1485 886 1594; Mul 1462 882 1136; Add 1485 1485 1462; Sub 1578 1578 1485;
  Mul 1485 914 1578; Div 1392 1392 905; Mul 1462 1273 1514; Sub 1392 1392 1462; Mul 1462 913 1392;
  Add 1485 1485 1462; Add 1591 1591 1485; Mul 1485 888 1594; Mul 1462 882 1490; Add 1485 1485 1462;
  Sub 1077 1077 1485; Mul 1485 916 1077; Div 1158 1158 905; Mul 1462 1260 1514; Sub 1158 1158 1462;
  Mul 1462 915 1158; Add 1485 1485 1462; Sub 1591 1591 1485; Mul 1485 890 1594; Mul 1462 882 1083;
  Add 1485 1485 1462; Add 1568 1568 1485; Mul 1485 918 1568; Div 1048 1048 905; Mul 1462 1249 1514;
  Sub 1048 1048 1462; Mul 1462 917 1048; Add 1485 1485 1462; Add 1591 1591 1485; Div 1290 1290 905;
  Mul 1485 1569 1514; Sub 1290 1290 1485; Mul 1485 919 1290; Mul 1462 892 1594; Mul 1234 882 1265;
  Add 1462 1462 1234; Add 1661 1661 1462; Mul 1462 920 1661; Sub 1485 1485 1462; Sub 1591 1591 1485;
  Mul 1485 912 1591; Mul 1462 911 1683; Add 1485 1485 1462; Add 1035 1035 1485; Mul 1485 944 1035;
  Mul 1462 210 1028; Mul 1234 168 1159; Add 1462 1462 1234; Mul 1234 777 1521; Mul 1126 171 1420;
  Add 1234 1234 1126; Add 1462 1462 1234; Mul 1234 778 1408; Mul 1126 877 1323; Add 1234 1234 1126;
  Add 1462 1462 1234; Mul 1234 769 1377; Mul 1126 878 1470; Add 1234 1234 1126].
Definition casadi_f0_398 : list instruction := [
  Add 1462 1462 1234; Mul 1234 761 1165; Mul 1126 98 1292; Add 1234 1234 1126; Add 1462 1462 1234;
  Mul 1234 754 1385; Mul 1126 855 1240; Add 1234 1234 1126; Add 1462 1462 1234; Mul 1234 210 1462;
  Mul 1126 922 1159; Add 1234 1234 1126; Sub 1028 1028 1234; Mul 1234 881 1028; Mul 1126 923 1117;
  Add 1234 1234 1126; Mul 1126 777 1462; Mul 1148 922 1420; Add 1126 1126 1148; Sub 1521 1521 1126;
  Mul 1126 884 1521; Mul 1148 925 1592; Add 1126 1126 1148; Add 1234 1234 1126; Mul 1126 778 1462;
  Mul 1148 922 1323; Add 1126 1126 1148; Sub 1126 1126 1408; Mul 1408 886 1126; Mul 1148 926 1136;
  Add 1408 1408 1148; Add 1234 1234 1408; Mul 1408 769 1462; Mul 1148 922 1470; Add 1408 1408 1148;
  Sub 1377 1377 1408; Mul 1408 888 1377; Mul 1148 927 1490; Add 1408 1408 1148; Add 1234 1234 1408;
  Mul 1408 761 1462; Mul 1148 922 1292; Add 1408 1408 1148; Sub 1408 1165 1408; Mul 1148 890 1408;
  Mul 1140 928 1083; Add 1148 1148 1140; Add 1234 1234 1148; Mul 1148 754 1462; Mul 1140 922 1240;
  Add 1148 1148 1140; Sub 1385 1385 1148; Mul 1148 892 1385; Mul 1140 929 1265; Add 1148 1148 1140;
  Add 1234 1234 1148; Mul 1148 881 1234; Mul 1140 924 1117; Add 1148 1148 1140; Sub 1028 1028 1148;
  Mul 1148 884 1234; Mul 1140 924 1592; Add 1148 1148 1140; Sub 1521 1521 1148; Mul 1148 910 1521;
  Mul 1140 931 1562; Add 1148 1148 1140; Mul 1140 912 1028; Mul 1612 930 1683; Add 1140 1140 1612;
  Sub 1148 1148 1140; Mul 1140 886 1234; Mul 1612 924 1136; Add 1140 1140 1612; Sub 1126 1126 1140;
  Mul 1140 914 1126; Mul 1612 933 1392; Add 1140 1140 1612; Add 1148 1148 1140; Mul 1140 888 1234;
  Mul 1612 924 1490; Add 1140 1140 1612; Sub 1377 1377 1140; Mul 1140 916 1377; Mul 1612 934 1158;
  Add 1140 1140 1612; Sub 1148 1148 1140; Mul 1140 890 1234; Mul 1612 924 1083; Add 1140 1140 1612;
  Sub 1408 1408 1140; Mul 1140 918 1408; Mul 1612 935 1048; Add 1140 1140 1612; Sub 1148 1148 1140;
  Mul 1140 892 1234; Mul 1612 924 1265; Add 1140 1140 1612; Sub 1385 1385 1140; Mul 1140 920 1385;
  Mul 1612 936 1290; Add 1140 1140 1612; Sub 1148 1148 1140; Mul 1140 912 1148; Mul 1612 932 1683;
  Add 1140 1140 1612; Add 1028 1028 1140; Div 1140 1028 938; Mul 1028 937 1028; Mul 1612 910 1148;
  Mul 1636 932 1562; Add 1612 1612 1636; Sub 1521 1521 1612; Mul 1612 939 1521; Add 1028 1028 1612;
  Mul 1612 914 1148; Mul 1636 932 1392; Add 1612 1612 1636; Sub 1126 1126 1612; Mul 1612 940 1126;
  Add 1028 1028 1612; Mul 1612 916 1148; Mul 1636 932 1158; Add 1612 1612 1636; Add 1377 1377 1612;
  Mul 1612 941 1377; Add 1028 1028 1612; Mul 1612 918 1148; Mul 1636 932 1048; Add 1612 1612 1636;
  Add 1408 1408 1612; Mul 1612 942 1408; Add 1028 1028 1612; Mul 1612 920 1148; Mul 1636 932 1290;
  Add 1612 1612 1636; Add 1385 1385 1612; Mul 1612 943 1385; Add 1028 1028 1612; Div 1028 1028 1615;
  Mul 1612 1446 1028; Sub 1140 1140 1612; Mul 1612 921 1140; Add 1485 1485 1612; Mul 1612 910 1591;
  Mul 1636 911 1562; Add 1612 1612 1636; Sub 1531 1531 1612; Mul 1612 947 1531].
Definition casadi_f0_399 : list instruction := [
  Div 1521 1521 938; Mul 1636 1184 1028; Sub 1521 1521 1636; Mul 1636 946 1521; Add 1612 1612 1636;
  Add 1485 1485 1612; Mul 1612 914 1591; Mul 1636 911 1392; Add 1612 1612 1636; Sub 1578 1578 1612;
  Mul 1612 949 1578; Div 1126 1126 938; Mul 1636 1160 1028; Sub 1126 1126 1636; Mul 1636 948 1126;
  Add 1612 1612 1636; Add 1485 1485 1612; Mul 1612 916 1591; Mul 1636 911 1158; Add 1612 1612 1636;
  Add 1077 1077 1612; Mul 1612 951 1077; Div 1377 1377 938; Mul 1636 1328 1028; Sub 1377 1377 1636;
  Mul 1636 950 1377; Add 1612 1612 1636; Add 1485 1485 1612; Mul 1612 918 1591; Mul 1636 911 1048;
  Add 1612 1612 1636; Sub 1612 1612 1568; Mul 1568 953 1612; Div 1408 1408 938; Mul 1636 1155 1028;
  Sub 1408 1408 1636; Mul 1636 952 1408; Add 1568 1568 1636; Add 1485 1485 1568; Mul 1568 920 1591;
  Mul 1636 911 1290; Add 1568 1568 1636; Sub 1568 1568 1661; Mul 1661 955 1568; Div 1385 1385 938;
  Mul 1636 1220 1028; Sub 1385 1385 1636; Mul 1636 954 1385; Add 1661 1661 1636; Add 1485 1485 1661;
  Mul 1661 944 1485; Mul 1636 945 1140; Add 1661 1661 1636; Sub 1035 1035 1661; Mul 1661 986 1035;
  Mul 1636 210 1508; Mul 1676 175 1159; Add 1636 1636 1676; Mul 1676 777 1678; Mul 1245 188 1420;
  Add 1676 1676 1245; Add 1636 1636 1676; Mul 1676 778 1174; Mul 1245 94 1323; Add 1676 1676 1245;
  Add 1636 1636 1676; Mul 1676 769 1165; Mul 1245 98 1470; Add 1676 1676 1245; Add 1636 1636 1676;
  Mul 1676 761 1186; Mul 1245 172 1292; Add 1676 1676 1245; Sub 1636 1636 1676; Mul 1676 754 1135;
  Mul 1245 201 1240; Add 1676 1676 1245; Sub 1636 1636 1676; Mul 1676 210 1636; Mul 1159 957 1159;
  Add 1676 1676 1159; Sub 1508 1508 1676; Mul 1676 881 1508; Mul 1159 958 1117; Add 1676 1676 1159;
  Mul 1159 777 1636; Mul 1420 957 1420; Add 1159 1159 1420; Sub 1678 1678 1159; Mul 1159 884 1678;
  Mul 1420 960 1592; Add 1159 1159 1420; Add 1676 1676 1159; Mul 1159 778 1636; Mul 1323 957 1323;
  Add 1159 1159 1323; Sub 1159 1159 1174; Mul 1174 886 1159; Mul 1323 961 1136; Add 1174 1174 1323;
  Add 1676 1676 1174; Mul 1174 769 1636; Mul 1470 957 1470; Add 1174 1174 1470; Sub 1165 1165 1174;
  Mul 1174 888 1165; Mul 1470 962 1490; Add 1174 1174 1470; Add 1676 1676 1174; Mul 1174 761 1636;
  Mul 1292 957 1292; Add 1174 1174 1292; Add 1186 1186 1174; Mul 1174 890 1186; Mul 1292 963 1083;
  Add 1174 1174 1292; Sub 1676 1676 1174; Mul 1174 754 1636; Mul 1240 957 1240; Add 1174 1174 1240;
  Add 1135 1135 1174; Mul 1174 892 1135; Mul 1240 964 1265; Add 1174 1174 1240; Sub 1676 1676 1174;
  Mul 1174 881 1676; Mul 1240 959 1117; Add 1174 1174 1240; Sub 1508 1508 1174; Mul 1174 884 1676;
  Mul 1240 959 1592; Add 1174 1174 1240; Sub 1678 1678 1174; Mul 1174 910 1678; Mul 1240 966 1562;
  Add 1174 1174 1240; Mul 1240 912 1508; Mul 1292 965 1683; Add 1240 1240 1292; Sub 1174 1174 1240;
  Mul 1240 886 1676; Mul 1292 959 1136; Add 1240 1240 1292; Sub 1159 1159 1240; Mul 1240 914 1159;
  Mul 1292 968 1392; Add 1240 1240 1292; Add 1174 1174 1240; Mul 1240 888 1676].
Definition casadi_f0_400 : list instruction := [
  Mul 1292 959 1490; Add 1240 1240 1292; Sub 1165 1165 1240; Mul 1240 916 1165; Mul 1292 969 1158;
  Add 1240 1240 1292; Sub 1174 1174 1240; Mul 1240 890 1676; Mul 1292 959 1083; Add 1240 1240 1292;
  Add 1186 1186 1240; Mul 1240 918 1186; Mul 1292 970 1048; Add 1240 1240 1292; Add 1174 1174 1240;
  Mul 1240 892 1676; Mul 1292 959 1265; Add 1240 1240 1292; Add 1135 1135 1240; Mul 1240 920 1135;
  Mul 1292 971 1290; Add 1240 1240 1292; Add 1174 1174 1240; Mul 1240 912 1174; Mul 1292 967 1683;
  Add 1240 1240 1292; Add 1508 1508 1240; Mul 1240 944 1508; Mul 1292 972 1140; Add 1240 1240 1292;
  Mul 1292 910 1174; Mul 1470 967 1562; Add 1292 1292 1470; Sub 1678 1678 1292; Mul 1292 947 1678;
  Mul 1470 974 1521; Add 1292 1292 1470; Add 1240 1240 1292; Mul 1292 914 1174; Mul 1470 967 1392;
  Add 1292 1292 1470; Sub 1159 1159 1292; Mul 1292 949 1159; Mul 1470 975 1126; Add 1292 1292 1470;
  Add 1240 1240 1292; Mul 1292 916 1174; Mul 1470 967 1158; Add 1292 1292 1470; Add 1165 1165 1292;
  Mul 1292 951 1165; Mul 1470 976 1377; Add 1292 1292 1470; Add 1240 1240 1292; Mul 1292 918 1174;
  Mul 1470 967 1048; Add 1292 1292 1470; Sub 1292 1292 1186; Mul 1186 953 1292; Mul 1470 977 1408;
  Add 1186 1186 1470; Add 1240 1240 1186; Mul 1186 920 1174; Mul 1470 967 1290; Add 1186 1186 1470;
  Sub 1186 1186 1135; Mul 1135 955 1186; Mul 1470 978 1385; Add 1135 1135 1470; Add 1240 1240 1135;
  Mul 1135 944 1240; Mul 1470 973 1140; Add 1135 1135 1470; Sub 1508 1508 1135; Div 1135 1508 980;
  Mul 1508 979 1508; Mul 1470 947 1240; Mul 1323 973 1521; Add 1470 1470 1323; Sub 1678 1678 1470;
  Mul 1470 981 1678; Add 1508 1508 1470; Mul 1470 949 1240; Mul 1323 973 1126; Add 1470 1470 1323;
  Sub 1159 1159 1470; Mul 1470 982 1159; Add 1508 1508 1470; Mul 1470 951 1240; Mul 1323 973 1377;
  Add 1470 1470 1323; Sub 1165 1165 1470; Mul 1470 983 1165; Add 1508 1508 1470; Mul 1470 953 1240;
  Mul 1323 973 1408; Add 1470 1470 1323; Sub 1292 1292 1470; Mul 1470 984 1292; Add 1508 1508 1470;
  Mul 1470 955 1240; Mul 1323 973 1385; Add 1470 1470 1323; Sub 1186 1186 1470; Mul 1470 985 1186;
  Add 1508 1508 1470; Div 1508 1508 1630; Mul 1470 1629 1508; Sub 1135 1135 1470; Mul 1470 956 1135;
  Add 1661 1661 1470; Mul 1470 947 1485; Mul 1323 945 1521; Add 1470 1470 1323; Sub 1531 1531 1470;
  Mul 1470 989 1531; Div 1678 1678 980; Mul 1323 1262 1508; Sub 1678 1678 1323; Mul 1323 988 1678;
  Add 1470 1470 1323; Add 1661 1661 1470; Mul 1470 949 1485; Mul 1323 945 1126; Add 1470 1470 1323;
  Sub 1578 1578 1470; Mul 1470 991 1578; Div 1159 1159 980; Mul 1323 1306 1508; Sub 1159 1159 1323;
  Mul 1323 990 1159; Add 1470 1470 1323; Add 1661 1661 1470; Mul 1470 951 1485; Mul 1323 945 1377;
  Add 1470 1470 1323; Sub 1077 1077 1470; Mul 1470 993 1077; Div 1165 1165 980; Mul 1323 1626 1508;
  Sub 1165 1165 1323; Mul 1323 992 1165; Add 1470 1470 1323; Add 1661 1661 1470; Mul 1470 953 1485;
  Mul 1323 945 1408; Add 1470 1470 1323; Sub 1612 1612 1470; Mul 1470 995 1612].
Definition casadi_f0_401 : list instruction := [
  Div 1292 1292 980; Mul 1323 1530 1508; Sub 1292 1292 1323; Mul 1323 994 1292; Add 1470 1470 1323;
  Add 1661 1661 1470; Mul 1470 955 1485; Mul 1323 945 1385; Add 1470 1470 1323; Sub 1568 1568 1470;
  Mul 1470 997 1568; Div 1186 1186 980; Mul 1323 1472 1508; Sub 1186 1186 1323; Mul 1323 996 1186;
  Add 1470 1470 1323; Add 1661 1661 1470; Mul 1470 986 1661; Mul 1323 987 1135; Add 1470 1470 1323;
  Sub 1035 1035 1470; Div 1470 1035 999; Mul 1035 998 1035; Mul 1323 989 1661; Mul 1420 987 1678;
  Add 1323 1323 1420; Sub 1531 1531 1323; Mul 1323 1000 1531; Add 1035 1035 1323; Mul 1323 991 1661;
  Mul 1420 987 1159; Add 1323 1323 1420; Sub 1578 1578 1323; Mul 1323 1001 1578; Add 1035 1035 1323;
  Mul 1323 993 1661; Mul 1420 987 1165; Add 1323 1323 1420; Sub 1077 1077 1323; Mul 1323 1002 1077;
  Add 1035 1035 1323; Mul 1323 995 1661; Mul 1420 987 1292; Add 1323 1323 1420; Sub 1612 1612 1323;
  Mul 1323 1003 1612; Add 1035 1035 1323; Mul 1323 997 1661; Mul 1420 987 1186; Add 1323 1323 1420;
  Sub 1568 1568 1323; Mul 1323 1004 1568; Add 1035 1035 1323; Div 1035 1035 1095; Mul 1323 1596 1035;
  Sub 1470 1470 1323; Mul 1470 211 1470; Mul 1323 1005 1026; Sub 1470 1470 1323; Div 1531 1531 999;
  Mul 1323 1331 1035; Sub 1531 1531 1323; Mul 1531 779 1531; Mul 1323 1007 1168; Sub 1531 1531 1323;
  Add 1470 1470 1531; Div 1578 1578 999; Mul 1531 1080 1035; Sub 1578 1578 1531; Mul 1578 767 1578;
  Mul 1531 1008 1322; Add 1578 1578 1531; Add 1470 1470 1578; Div 1077 1077 999; Mul 1578 1056 1035;
  Sub 1077 1077 1578; Mul 1077 775 1077; Mul 1578 1009 1410; Sub 1077 1077 1578; Add 1470 1470 1077;
  Div 1612 1612 999; Mul 1077 1068 1035; Sub 1612 1612 1077; Mul 1612 815 1612; Mul 1077 1010 1655;
  Add 1612 1612 1077; Add 1470 1470 1612; Div 1568 1568 999; Mul 1612 1178 1035; Sub 1568 1568 1612;
  Mul 1568 833 1568; Mul 1612 1011 1246; Add 1568 1568 1612; Add 1470 1470 1568; Div 1470 1470 999;
  Mul 1035 1033 1035; Sub 1470 1470 1035; Mul 1035 756 1470; Add 1498 1498 1035; Sub 1217 1217 1498;
  Mul 1636 1012 1636; Mul 1135 211 1135; Mul 1498 986 1026; Sub 1135 1135 1498; Mul 1678 779 1678;
  Mul 1498 989 1168; Sub 1678 1678 1498; Add 1135 1135 1678; Mul 1159 767 1159; Mul 1678 991 1322;
  Add 1159 1159 1678; Add 1135 1135 1159; Mul 1165 775 1165; Mul 1159 993 1410; Sub 1165 1165 1159;
  Add 1135 1135 1165; Mul 1292 815 1292; Mul 1165 995 1655; Add 1292 1292 1165; Add 1135 1135 1292;
  Mul 1186 833 1186; Mul 1292 997 1246; Add 1186 1186 1292; Add 1135 1135 1186; Mul 1661 1006 1661;
  Mul 1186 987 1470; Add 1661 1661 1186; Sub 1135 1135 1661; Div 1135 1135 980; Mul 1508 1534 1508;
  Sub 1135 1135 1508; Mul 1508 957 1135; Add 1636 1636 1508; Sub 1217 1217 1636; Mul 1462 1013 1462;
  Mul 1140 211 1140; Mul 1636 944 1026; Sub 1140 1140 1636; Mul 1521 779 1521; Mul 1636 947 1168;
  Sub 1521 1521 1636; Add 1140 1140 1521; Mul 1126 767 1126; Mul 1521 949 1322; Add 1126 1126 1521;
  Add 1140 1140 1126; Mul 1377 775 1377; Mul 1126 951 1410; Sub 1377 1377 1126].
Definition casadi_f0_402 : list instruction := [
  Add 1140 1140 1377; Mul 1408 815 1408; Mul 1377 953 1655; Add 1408 1408 1377; Add 1140 1140 1408;
  Mul 1385 833 1385; Mul 1408 955 1246; Add 1385 1385 1408; Add 1140 1140 1385; Mul 1485 1006 1485;
  Mul 1385 945 1470; Add 1485 1485 1385; Sub 1140 1140 1485; Mul 1240 1012 1240; Mul 1485 973 1135;
  Add 1240 1240 1485; Sub 1140 1140 1240; Div 1140 1140 938; Mul 1028 1397 1028; Sub 1140 1140 1028;
  Mul 1028 922 1140; Add 1462 1462 1028; Sub 1217 1217 1462; Mul 1020 1014 1020; Mul 1562 779 1562;
  Mul 1462 910 1168; Sub 1562 1562 1462; Mul 1683 211 1683; Mul 1462 912 1026; Sub 1683 1683 1462;
  Sub 1562 1562 1683; Mul 1392 767 1392; Mul 1683 914 1322; Add 1392 1392 1683; Add 1562 1562 1392;
  Mul 1158 775 1158; Mul 1392 916 1410; Sub 1158 1158 1392; Sub 1562 1562 1158; Mul 1048 815 1048;
  Mul 1158 918 1655; Add 1048 1048 1158; Sub 1562 1562 1048; Mul 1290 833 1290; Mul 1048 920 1246;
  Add 1290 1290 1048; Sub 1562 1562 1290; Mul 1591 1006 1591; Mul 1290 911 1470; Add 1591 1591 1290;
  Sub 1562 1562 1591; Mul 1174 1012 1174; Mul 1591 967 1135; Add 1174 1174 1591; Sub 1562 1562 1174;
  Mul 1148 1013 1148; Mul 1174 932 1140; Add 1148 1148 1174; Sub 1562 1562 1148; Div 1562 1562 905;
  Mul 1514 1553 1514; Sub 1562 1562 1514; Mul 1514 895 1562; Add 1020 1020 1514; Sub 1217 1217 1020;
  Mul 1524 1015 1524; Mul 1117 211 1117; Mul 1026 881 1026; Sub 1117 1117 1026; Mul 1592 779 1592;
  Mul 1168 884 1168; Sub 1592 1592 1168; Add 1117 1117 1592; Mul 1136 767 1136; Mul 1322 886 1322;
  Add 1136 1136 1322; Add 1117 1117 1136; Mul 1490 775 1490; Mul 1410 888 1410; Sub 1490 1490 1410;
  Add 1117 1117 1490; Mul 1083 815 1083; Mul 1655 890 1655; Add 1083 1083 1655; Add 1117 1117 1083;
  Mul 1265 833 1265; Mul 1246 892 1246; Add 1265 1265 1246; Add 1117 1117 1265; Mul 1594 1006 1594;
  Mul 1265 882 1470; Add 1594 1594 1265; Sub 1117 1117 1594; Mul 1676 1012 1676; Mul 1594 959 1135;
  Add 1676 1676 1594; Sub 1117 1117 1676; Mul 1234 1013 1234; Mul 1676 924 1140; Add 1234 1234 1676;
  Sub 1117 1117 1234; Mul 1053 1014 1053; Mul 1234 897 1562; Add 1053 1053 1234; Sub 1117 1117 1053;
  Div 1117 1117 65; Mul 1307 1623 1307; Sub 1117 1117 1307; Mul 1307 875 1117; Add 1524 1524 1307;
  Sub 1217 1217 1524; Div 1217 1217 92; Mul 1024 759 1024; Sub 1217 1217 1024; Out 1 78 1217; Out 1 79 1117;
  Out 1 80 1562; Out 1 81 1140; Out 1 82 1135; Out 1 83 1470; Arg 1470 1 90; Out 1 84 1470; Arg 1135 1 91;
  Out 1 85 1135; Arg 1140 1 92; Out 1 86 1140; Arg 1562 1 93; Out 1 87 1562; Arg 1117 1 94; Out 1 88 1117;
  Arg 1217 1 95; Out 1 89 1217; Arg 1024 1 86; Mul 1524 8 1024; Mul 1307 10 1524; Arg 1053 1 89;
  Mul 1234 16 1053; Mul 1676 21 1234; Mul 1053 15 1053; Mul 1594 18 1053; Mul 1265 14 1234; Add 1594 1594 1265;
  Mul 1265 15 1594; Sub 1676 1676 1265; Mul 1265 18 1234; Mul 1246 14 1053; Sub 1265 1265 1246;
  Mul 1265 16 1265; Mul 1246 17 1053].
Definition casadi_f0_403 : list instruction := [
  Sub 1265 1265 1246; Sub 1246 1676 1265; Mul 1083 28 1053; Mul 1655 26 1234; Add 1083 1083 1655;
  Mul 1655 1031 1083; Mul 1490 28 1234; Mul 1410 26 1053; Sub 1490 1490 1410; Mul 1410 29 1490;
  Sub 1136 1655 1410; Mul 1136 20 1136; Add 1246 1246 1136; Mul 1410 20 1410; Add 1676 1676 1410;
  Add 1246 1246 1676; Mul 1655 20 1655; Add 1265 1265 1655; Add 1265 1265 1676; Add 1655 1246 1265;
  Mul 1265 19 1265; Arg 1410 1 88; Mul 1136 35 1410; Mul 1322 30 1136; Sub 1265 1265 1322; Mul 1410 19 1410;
  Mul 1322 41 1410; Mul 1592 42 1234; Mul 1168 40 1053; Sub 1592 1592 1168; Mul 1168 43 1234;
  Sub 1592 1592 1168; Mul 1168 44 1490; Add 1592 1592 1168; Mul 1168 35 1592; Add 1322 1322 1168;
  Sub 1265 1265 1322; Mul 1322 19 1265; Mul 1168 38 1136; Sub 1322 1322 1168; Mul 1592 19 1592;
  Mul 1168 41 1136; Sub 1592 1592 1168; Mul 1168 12 1410; Mul 1246 35 1246; Add 1168 1168 1246;
  Sub 1592 1592 1168; Mul 1168 35 1592; Mul 1246 46 1410; Add 1168 1168 1246; Sub 1322 1322 1168;
  Sub 1655 1655 1322; Sub 1655 1655 1676; Mul 1168 50 1083; Mul 1246 1039 1168; Mul 1026 50 1490;
  Mul 1020 19 1026; Mul 1514 49 1136; Sub 1020 1020 1514; Mul 1514 51 1410; Sub 1020 1020 1514;
  Mul 1514 1041 1020; Sub 1148 1246 1514; Mul 1148 37 1148; Add 1655 1655 1148; Mul 1148 49 1410;
  Mul 1174 35 1026; Add 1148 1148 1174; Mul 1174 51 1136; Sub 1148 1148 1174; Mul 1174 64 1148;
  Add 1514 1174 1514; Mul 1514 37 1514; Add 1514 1676 1514; Add 1655 1655 1514; Mul 1591 43 1053;
  Mul 1290 42 1053; Mul 1048 40 1234; Add 1290 1290 1048; Sub 1591 1591 1290; Mul 1290 44 1083;
  Sub 1591 1591 1290; Mul 1290 67 1591; Mul 1048 19 1290; Mul 1158 71 1136; Sub 1048 1048 1158;
  Mul 1158 75 1410; Mul 1594 16 1594; Mul 1392 21 1053; Add 1594 1594 1392; Mul 1083 74 1083; Mul 1490 20 1490;
  Mul 1490 34 1490; Sub 1083 1083 1490; Add 1594 1594 1083; Add 1083 1594 1594; Mul 1490 35 1083;
  Sub 1158 1158 1490; Add 1048 1048 1158; Mul 1158 73 1410; Mul 1490 35 1594; Sub 1158 1158 1490;
  Mul 1490 19 1591; Mul 1392 70 1136; Sub 1490 1490 1392; Add 1158 1158 1490; Sub 1048 1048 1158;
  Mul 1158 76 1168; Mul 1490 37 1148; Mul 1392 57 1490; Sub 1158 1158 1392; Sub 1048 1048 1158;
  Mul 1158 67 1048; Mul 1158 66 1158; Arg 1392 1 87; Mul 1683 53 1392; Mul 1462 77 1683; Sub 1158 1158 1462;
  Mul 1392 66 1392; Mul 1462 11 1392; Mul 1028 53 1655; Add 1462 1462 1028; Sub 1158 1158 1462;
  Mul 1462 53 1158; Mul 1028 78 1392; Add 1462 1462 1028; Add 1655 1655 1462; Sub 1655 1655 1514;
  Mul 1028 87 1683; Mul 1240 83 1168; Mul 1485 66 1240; Add 1028 1028 1485; Mul 1485 88 1392; Mul 1148 83 1148;
  Mul 1385 53 1148; Add 1485 1485 1385; Add 1028 1028 1485; Mul 1485 1054 1028; Mul 1385 83 1020;
  Mul 1408 1058 1385; Sub 1377 1485 1408; Mul 1377 80 1377; Add 1655 1655 1377; Add 1514 1514 1462;
  Mul 1462 66 1148; Mul 1377 88 1683; Sub 1462 1462 1377; Mul 1377 87 1392; Mul 1126 53 1240].
Definition casadi_f0_404 : list instruction := [
  Sub 1377 1377 1126; Add 1462 1462 1377; Mul 1377 93 1462; Add 1408 1377 1408; Mul 1408 80 1408;
  Add 1514 1514 1408; Add 1655 1655 1514; Mul 1408 9 1655; Add 1307 1307 1408; Mul 1158 66 1158;
  Mul 1408 78 1683; Sub 1158 1158 1408; Sub 1158 1158 1048; Mul 1048 72 1028; Mul 1408 80 1462;
  Mul 1126 63 1408; Sub 1048 1048 1126; Sub 1158 1158 1048; Mul 1048 67 1158; Mul 1048 8 1048; Mul 1024 9 1024;
  Mul 1126 97 1024; Sub 1048 1048 1126; Add 1307 1307 1048; Mul 1048 9 1307; Mul 1126 84 1524;
  Add 1048 1048 1126; Sub 1126 1048 1514; Mul 1462 104 1462; Mul 1521 8 1462; Mul 1636 103 1024;
  Sub 1521 1521 1636; Mul 1636 105 1524; Mul 1508 104 1028; Mul 1661 9 1508; Sub 1636 1636 1661;
  Sub 1521 1521 1636; Mul 1636 33 1521; Mul 1661 104 1385; Mul 1186 1066 1661; Add 1292 1636 1186;
  Mul 1292 100 1292; Sub 1126 1126 1292; Mul 1307 8 1307; Mul 1292 84 1024; Sub 1307 1307 1292;
  Sub 1307 1307 1158; Mul 1158 103 1524; Mul 1292 9 1462; Add 1158 1158 1292; Mul 1292 105 1024;
  Mul 1165 8 1508; Add 1292 1292 1165; Sub 1158 1158 1292; Mul 1292 96 1158; Mul 1165 100 1521;
  Mul 1159 117 1165; Sub 1292 1292 1159; Add 1307 1307 1292; Mul 1307 67 1307; Mul 1307 114 1307; Arg 1292 1 85;
  Mul 1159 113 1292; Mul 1678 116 1159; Sub 1307 1307 1678; Mul 1292 114 1292; Mul 1678 119 1292;
  Sub 1655 1655 1048; Sub 1655 1655 1514; Mul 1514 1044 1158; Sub 1186 1514 1186; Mul 1186 100 1186;
  Add 1655 1655 1186; Sub 1655 1655 1126; Mul 1655 113 1655; Add 1678 1678 1655; Sub 1307 1307 1678;
  Mul 1307 113 1307; Mul 1678 118 1292; Add 1307 1307 1678; Sub 1126 1126 1307; Mul 1521 120 1521;
  Mul 1307 114 1521; Mul 1678 60 1159; Sub 1307 1307 1678; Mul 1678 121 1292; Mul 1655 120 1158;
  Mul 1186 113 1655; Add 1678 1678 1186; Add 1307 1307 1678; Mul 1678 112 1307; Mul 1186 120 1661;
  Mul 1048 123 1186; Add 1678 1678 1048; Mul 1678 99 1678; Sub 1126 1126 1678; Mul 1307 125 1307;
  Mul 1307 110 1307; Mul 1678 125 1186; Mul 1678 126 1678; Add 1307 1307 1678; Mul 1307 122 1307;
  Add 1126 1126 1307; Div 1307 1126 92; Mul 1126 6 1126; Mul 1678 130 1524; Mul 1592 19 1592; Mul 1048 46 1136;
  Sub 1592 1592 1048; Mul 1265 35 1265; Mul 1048 38 1410; Add 1265 1265 1048; Add 1592 1592 1265;
  Mul 1490 52 1490; Mul 1265 76 1020; Add 1490 1490 1265; Add 1592 1592 1490; Mul 1490 66 1592;
  Mul 1265 129 1683; Sub 1490 1490 1265; Mul 1265 132 1392; Mul 1048 70 1410; Mul 1498 35 1591;
  Add 1048 1048 1498; Mul 1498 73 1136; Mul 1035 19 1594; Add 1498 1498 1035; Add 1048 1048 1498;
  Mul 1083 19 1083; Mul 1498 75 1136; Add 1083 1083 1498; Mul 1290 35 1290; Mul 1498 71 1410;
  Add 1290 1290 1498; Add 1083 1083 1290; Sub 1048 1048 1083; Mul 1083 133 1168; Mul 1020 37 1020;
  Mul 1020 57 1020; Sub 1083 1083 1020; Sub 1048 1048 1083; Mul 1083 53 1048; Add 1265 1265 1083;
  Add 1490 1490 1265; Mul 1408 27 1408; Mul 1265 72 1385; Add 1408 1408 1265; Add 1490 1490 1408;
  Mul 1408 9 1490].
Definition casadi_f0_405 : list instruction := [
  Add 1678 1678 1408; Add 1408 1048 1048; Mul 1408 66 1408; Mul 1265 136 1683; Sub 1408 1408 1265;
  Mul 1265 129 1392; Mul 1083 53 1592; Add 1265 1265 1083; Sub 1408 1408 1265; Mul 1265 66 1048;
  Mul 1083 132 1683; Sub 1265 1265 1083; Sub 1408 1408 1265; Mul 1028 138 1028; Mul 1265 80 1385;
  Mul 1265 63 1265; Sub 1028 1028 1265; Sub 1408 1408 1028; Add 1028 1408 1408; Mul 1028 8 1028;
  Mul 1265 139 1024; Sub 1028 1028 1265; Add 1678 1678 1028; Mul 1028 8 1408; Mul 1265 137 1024;
  Sub 1028 1028 1265; Sub 1678 1678 1028; Mul 1158 140 1158; Mul 1028 100 1661; Mul 1028 117 1028;
  Sub 1158 1158 1028; Add 1678 1678 1158; Mul 1158 141 1186; Mul 1158 121 1158; Mul 1028 142 1655;
  Add 1158 1158 1028; Sub 1678 1678 1158; Mul 1678 114 1678; Mul 1158 134 1159; Sub 1678 1678 1158;
  Mul 1158 145 1292; Mul 1028 8 1490; Mul 1265 130 1024; Sub 1028 1028 1265; Mul 1265 137 1524; Mul 1083 9 1408;
  Add 1265 1265 1083; Sub 1028 1028 1265; Mul 1165 111 1165; Mul 1265 96 1661; Add 1165 1165 1265;
  Add 1028 1028 1165; Mul 1165 141 1521; Mul 1165 124 1165; Mul 1186 146 1186; Add 1165 1165 1186;
  Sub 1028 1028 1165; Mul 1028 113 1028; Add 1158 1158 1028; Sub 1678 1678 1158; Mul 1158 1073 1678;
  Add 1126 1126 1158; Mul 1158 150 1292; Mul 1028 149 1524; Mul 1165 148 1661; Mul 1186 147 1508;
  Mul 1265 109 1186; Sub 1165 1165 1265; Add 1408 1408 1165; Mul 1165 9 1408; Add 1028 1028 1165;
  Mul 1661 151 1661; Mul 1165 147 1462; Mul 1265 109 1165; Add 1661 1661 1265; Add 1490 1490 1661;
  Mul 1661 8 1490; Mul 1265 152 1024; Sub 1661 1661 1265; Sub 1028 1028 1661; Mul 1661 148 1524;
  Mul 1265 9 1186; Sub 1661 1661 1265; Mul 1265 8 1165; Mul 1083 151 1024; Sub 1265 1265 1083;
  Sub 1661 1661 1265; Mul 1265 108 1661; Add 1028 1028 1265; Mul 1028 113 1028; Add 1158 1158 1028;
  Mul 1028 152 1524; Mul 1490 9 1490; Add 1028 1028 1490; Mul 1408 8 1408; Mul 1490 149 1024;
  Sub 1408 1408 1490; Add 1028 1028 1408; Mul 1408 151 1524; Mul 1490 9 1165; Add 1408 1408 1490;
  Mul 1490 148 1024; Mul 1265 8 1186; Add 1490 1490 1265; Sub 1408 1408 1490; Mul 1408 108 1408;
  Add 1028 1028 1408; Mul 1028 114 1028; Mul 1408 155 1159; Sub 1028 1028 1408; Add 1158 1158 1028;
  Mul 1028 1050 1158; Add 1126 1126 1028; Mul 1028 159 1524; Mul 1408 156 1148; Mul 1408 82 1408;
  Mul 1490 157 1385; Add 1408 1408 1490; Sub 1592 1592 1408; Mul 1408 66 1592; Mul 1490 158 1683;
  Sub 1408 1408 1490; Mul 1490 161 1392; Mul 1385 156 1385; Mul 1385 87 1385; Mul 1265 160 1240;
  Sub 1385 1385 1265; Sub 1048 1048 1385; Mul 1385 53 1048; Add 1490 1490 1385; Add 1408 1408 1490;
  Mul 1490 9 1408; Add 1028 1028 1490; Mul 1048 66 1048; Mul 1490 161 1683; Sub 1048 1048 1490;
  Mul 1490 158 1392; Mul 1592 53 1592; Add 1490 1490 1592; Sub 1048 1048 1490; Mul 1490 8 1048;
  Mul 1592 163 1024; Sub 1490 1490 1592; Add 1028 1028 1490; Mul 1490 167 1392; Mul 1592 166 1148;
  Mul 1385 53 1592; Add 1490 1490 1385; Mul 1385 164 1683].
Definition casadi_f0_406 : list instruction := [
  Mul 1265 156 1240; Mul 1083 66 1265; Add 1385 1385 1083; Sub 1490 1490 1385; Mul 1385 8 1490;
  Mul 1083 165 1024; Sub 1385 1385 1083; Mul 1083 169 1524; Mul 1592 66 1592; Mul 1020 167 1683;
  Sub 1592 1592 1020; Mul 1020 164 1392; Mul 1265 53 1265; Sub 1020 1020 1265; Sub 1592 1592 1020;
  Mul 1020 9 1592; Add 1083 1083 1020; Sub 1385 1385 1083; Mul 1385 108 1385; Sub 1028 1028 1385;
  Mul 1028 114 1028; Mul 1385 162 1159; Sub 1028 1028 1385; Mul 1385 170 1292; Mul 1408 8 1408;
  Mul 1083 159 1024; Sub 1408 1408 1083; Mul 1083 163 1524; Mul 1048 9 1048; Add 1083 1083 1048;
  Sub 1408 1408 1083; Mul 1083 165 1524; Mul 1048 9 1490; Add 1083 1083 1048; Mul 1048 8 1592;
  Mul 1020 169 1024; Sub 1048 1048 1020; Add 1083 1083 1048; Mul 1048 108 1083; Add 1408 1408 1048;
  Mul 1408 113 1408; Add 1385 1385 1408; Sub 1028 1028 1385; Mul 1385 1070 1028; Add 1126 1126 1385;
  Mul 1385 179 1524; Mul 1408 177 1392; Mul 1048 174 1026; Mul 1026 173 1026; Mul 1020 49 1026;
  Add 1048 1048 1020; Add 1048 1048 1676; Mul 1020 174 1410; Mul 1265 35 1026; Add 1020 1020 1265;
  Mul 1265 176 1136; Sub 1020 1020 1265; Mul 1265 62 1020; Mul 1290 176 1410; Mul 1498 19 1026;
  Mul 1035 174 1136; Sub 1498 1498 1035; Sub 1290 1290 1498; Mul 1498 48 1290; Sub 1265 1265 1498;
  Add 1265 1048 1265; Mul 1498 53 1265; Add 1408 1408 1498; Mul 1498 176 1168; Sub 1591 1591 1498;
  Mul 1498 19 1591; Mul 1035 180 1136; Sub 1498 1498 1035; Mul 1035 182 1410; Mul 1026 56 1026;
  Mul 1168 174 1168; Sub 1026 1026 1168; Sub 1026 1026 1594; Mul 1594 35 1026; Add 1035 1035 1594;
  Add 1498 1498 1035; Mul 1035 55 1020; Add 1498 1498 1035; Mul 1035 66 1498; Mul 1594 181 1683;
  Sub 1035 1035 1594; Sub 1408 1408 1035; Mul 1035 86 1020; Sub 1408 1408 1035; Mul 1035 9 1408;
  Add 1385 1385 1035; Mul 1035 181 1392; Mul 1498 53 1498; Add 1035 1035 1498; Mul 1265 66 1265;
  Mul 1498 177 1683; Sub 1265 1265 1498; Add 1035 1035 1265; Mul 1265 91 1020; Add 1035 1035 1265;
  Mul 1265 8 1035; Mul 1498 184 1024; Sub 1265 1265 1498; Add 1385 1385 1265; Mul 1020 102 1020;
  Mul 1265 66 1290; Mul 1498 178 1683; Sub 1265 1265 1498; Mul 1498 8 1265; Mul 1594 185 1024;
  Sub 1498 1498 1594; Mul 1594 187 1524; Mul 1168 178 1392; Mul 1568 53 1290; Add 1168 1168 1568;
  Mul 1568 9 1168; Add 1594 1594 1568; Add 1498 1498 1594; Mul 1498 108 1498; Sub 1020 1020 1498;
  Add 1385 1385 1020; Mul 1385 114 1385; Mul 1020 183 1159; Sub 1385 1385 1020; Mul 1020 186 1292;
  Mul 1408 8 1408; Mul 1498 179 1024; Sub 1408 1408 1498; Mul 1498 184 1524; Mul 1035 9 1035;
  Add 1498 1498 1035; Sub 1408 1408 1498; Mul 1498 185 1524; Mul 1035 9 1265; Add 1498 1498 1035;
  Mul 1035 8 1168; Mul 1594 187 1024; Sub 1035 1035 1594; Sub 1498 1498 1035; Mul 1035 108 1498;
  Add 1408 1408 1035; Mul 1408 113 1408; Add 1020 1020 1408; Sub 1385 1385 1020; Mul 1020 1059 1385;
  Add 1126 1126 1020; Mul 1020 199 1524; Mul 1408 196 1410; Mul 1035 197 1234].
Definition casadi_f0_407 : list instruction := [
  Mul 1594 195 1053; Sub 1035 1035 1594; Mul 1594 190 1053; Mul 1568 192 1234; Add 1594 1594 1568;
  Mul 1568 198 1594; Add 1035 1035 1568; Mul 1568 35 1035; Add 1408 1408 1568; Mul 1568 189 1136;
  Mul 1612 25 1594; Mul 1077 190 1234; Mul 1578 192 1053; Sub 1077 1077 1578; Mul 1578 32 1077;
  Add 1612 1612 1578; Mul 1578 19 1612; Add 1568 1568 1578; Sub 1408 1408 1568; Mul 1568 48 1594;
  Mul 1578 19 1077; Mul 1531 194 1136; Sub 1578 1578 1531; Mul 1531 55 1578; Add 1568 1568 1531;
  Sub 1408 1408 1568; Mul 1568 66 1408; Mul 1531 193 1683; Sub 1568 1568 1531; Mul 1531 202 1392;
  Mul 1323 198 1077; Mul 1420 197 1053; Mul 1245 195 1234; Add 1420 1420 1245; Sub 1323 1323 1420;
  Mul 1420 62 1578; Mul 1245 194 1410; Mul 1077 35 1077; Add 1245 1245 1077; Mul 1077 48 1245;
  Sub 1420 1420 1077; Add 1420 1323 1420; Mul 1077 53 1420; Add 1531 1531 1077; Add 1568 1568 1531;
  Mul 1531 86 1578; Sub 1568 1568 1531; Mul 1531 9 1568; Add 1020 1020 1531; Mul 1420 66 1420;
  Mul 1531 202 1683; Sub 1420 1420 1531; Mul 1531 193 1392; Mul 1408 53 1408; Add 1531 1531 1408;
  Sub 1420 1420 1531; Mul 1531 91 1578; Add 1420 1420 1531; Mul 1531 8 1420; Mul 1408 205 1024;
  Sub 1531 1531 1408; Add 1020 1020 1531; Mul 1578 102 1578; Mul 1531 66 1245; Mul 1408 203 1683;
  Sub 1531 1531 1408; Mul 1408 191 1392; Mul 1077 53 1594; Sub 1408 1408 1077; Add 1531 1531 1408;
  Mul 1408 8 1531; Mul 1077 206 1024; Sub 1408 1408 1077; Mul 1077 208 1524; Mul 1291 191 1683;
  Mul 1466 66 1594; Add 1291 1291 1466; Mul 1466 203 1392; Mul 1177 53 1245; Add 1466 1466 1177;
  Add 1291 1291 1466; Mul 1466 9 1291; Sub 1077 1077 1466; Sub 1408 1408 1077; Mul 1408 108 1408;
  Sub 1578 1578 1408; Add 1020 1020 1578; Mul 1020 114 1020; Mul 1578 204 1159; Sub 1020 1020 1578;
  Mul 1578 207 1292; Mul 1568 8 1568; Mul 1408 199 1024; Sub 1568 1568 1408; Mul 1408 205 1524; Mul 1420 9 1420;
  Add 1408 1408 1420; Sub 1568 1568 1408; Mul 1408 206 1524; Mul 1420 9 1531; Add 1408 1408 1420;
  Mul 1420 208 1024; Mul 1077 8 1291; Add 1420 1420 1077; Sub 1408 1408 1420; Mul 1420 108 1408;
  Add 1568 1568 1420; Mul 1568 113 1568; Add 1578 1578 1568; Sub 1020 1020 1578; Mul 1578 1043 1020;
  Add 1126 1126 1578; Div 1126 1126 1085; Mul 1578 1072 1126; Sub 1307 1307 1578; Mul 1578 211 1307;
  Mul 1568 216 1292; Arg 1420 1 84; Mul 1077 215 1420; Mul 1466 113 1077; Sub 1568 1568 1466; Mul 1466 218 1568;
  Mul 1177 114 1470; Mul 1396 0 1159; Sub 1177 1177 1396; Mul 1396 217 1177; Add 1466 1466 1396;
  Mul 1420 216 1420; Mul 1396 1 1420; Mul 1279 215 1135; Add 1396 1396 1279; Sub 1466 1466 1396;
  Mul 1396 0 1292; Mul 1279 113 1470; Add 1396 1396 1279; Mul 1279 220 1396; Mul 1241 114 1077;
  Mul 1633 216 1159; Add 1241 1241 1633; Mul 1633 221 1241; Sub 1279 1279 1633; Sub 1466 1466 1279;
  Mul 1279 214 1466; Mul 1633 213 1279; Mul 1633 212 1633; Mul 1298 225 1633; Mul 1180 114 1420;
  Mul 1506 215 1159; Sub 1180 1180 1506].
Definition casadi_f0_408 : list instruction := [
  Mul 1506 101 1180; Mul 1657 107 1077; Sub 1506 1506 1657; Mul 1657 223 1506; Add 1418 1298 1657;
  Mul 1698 216 1135; Mul 1162 1 1077; Sub 1698 1698 1162; Mul 1162 113 1420; Mul 1137 215 1292;
  Add 1162 1162 1137; Mul 1137 218 1162; Mul 1116 228 1177; Add 1137 1137 1116; Add 1698 1698 1137;
  Mul 1137 221 1180; Mul 1116 224 1396; Add 1137 1137 1116; Sub 1698 1698 1137; Mul 1137 214 1698;
  Mul 1116 213 1137; Mul 1116 212 1116; Mul 1096 231 1116; Mul 1571 101 1241; Mul 1475 107 1420;
  Add 1571 1571 1475; Mul 1475 230 1571; Sub 1096 1096 1475; Sub 1475 1418 1096; Add 1657 1657 1298;
  Sub 1096 1657 1096; Add 1298 1475 1096; Mul 1556 144 1292; Mul 1258 215 1556; Mul 1261 240 1420;
  Add 1258 1258 1261; Mul 1261 236 1159; Mul 1303 238 1292; Add 1261 1261 1303; Mul 1303 220 1261;
  Mul 1538 237 1241; Add 1303 1303 1538; Sub 1258 1258 1303; Mul 1303 115 1077; Add 1258 1258 1303;
  Mul 1303 212 1571; Mul 1538 242 1303; Mul 1499 101 1292; Mul 1512 241 1499; Add 1538 1538 1512;
  Add 1538 1258 1538; Mul 1512 244 1538; Mul 1684 213 1698; Mul 1120 243 1684; Add 1312 1512 1120;
  Mul 1107 237 1180; Mul 1603 224 1261; Sub 1107 1107 1603; Mul 1556 216 1556; Mul 1603 240 1077;
  Sub 1556 1556 1603; Sub 1107 1107 1556; Mul 1556 115 1420; Sub 1107 1107 1556; Mul 1556 212 1506;
  Mul 1556 242 1556; Mul 1603 247 1499; Sub 1556 1556 1603; Sub 1556 1107 1556; Mul 1603 249 1556;
  Mul 1453 213 1466; Mul 1309 248 1453; Add 1582 1603 1309; Sub 1697 1312 1582; Sub 1298 1298 1697;
  Add 1309 1309 1603; Add 1120 1120 1512; Sub 1512 1309 1120; Add 1298 1298 1512; Mul 1512 9 1568;
  Mul 1603 217 1524; Add 1512 1512 1603; Mul 1603 8 1241; Mul 1697 220 1024; Add 1603 1603 1697;
  Sub 1512 1512 1603; Mul 1603 254 1512; Mul 1697 218 1524; Mul 1218 9 1177; Add 1697 1697 1218;
  Mul 1218 8 1396; Mul 1207 221 1024; Sub 1218 1218 1207; Sub 1697 1697 1218; Mul 1218 253 1697;
  Add 1603 1603 1218; Mul 1568 8 1568; Mul 1218 217 1024; Sub 1568 1568 1218; Mul 1218 220 1524;
  Mul 1207 9 1241; Sub 1218 1218 1207; Sub 1568 1568 1218; Mul 1218 257 1568; Mul 1207 221 1524;
  Mul 1689 9 1396; Add 1207 1207 1689; Mul 1689 8 1177; Mul 1656 218 1024; Sub 1689 1689 1656;
  Add 1207 1207 1689; Mul 1689 256 1207; Add 1218 1218 1689; Mul 1689 259 1420; Sub 1656 1135 1140;
  Mul 1251 215 1656; Add 1689 1689 1251; Sub 1218 1218 1689; Add 1603 1603 1218; Mul 1218 213 1603;
  Mul 1689 276 1218; Mul 1251 114 1524; Mul 1310 9 1159; Sub 1251 1251 1310; Mul 1310 8 1292; Mul 1093 113 1024;
  Sub 1310 1310 1093; Sub 1251 1251 1310; Mul 1310 260 1251; Mul 1093 9 1292; Mul 1417 113 1524;
  Add 1093 1093 1417; Mul 1417 8 1159; Mul 1693 114 1024; Add 1417 1417 1693; Sub 1093 1093 1417;
  Mul 1417 263 1093; Add 1310 1310 1417; Mul 1417 265 1310; Mul 1693 8 1180; Mul 1595 224 1024;
  Sub 1693 1693 1595; Mul 1595 9 1162; Mul 1242 228 1524; Add 1595 1595 1242; Add 1693 1693 1595;
  Mul 1595 262 1693; Add 1417 1417 1595; Mul 1595 127 1251].
Definition casadi_f0_409 : list instruction := [
  Mul 1242 268 1093; Add 1595 1595 1242; Mul 1242 216 1595; Mul 1501 267 1077; Sub 1242 1242 1501;
  Add 1417 1417 1242; Mul 1242 135 1512; Mul 1501 95 1420; Add 1242 1242 1501; Sub 1417 1417 1242;
  Mul 1242 102 1180; Mul 1501 108 1077; Sub 1242 1242 1501; Mul 1501 79 1693; Mul 1110 8 1162;
  Mul 1213 228 1024; Sub 1110 1110 1213; Mul 1213 9 1180; Mul 1201 224 1524; Add 1213 1213 1201;
  Sub 1110 1110 1213; Mul 1213 85 1110; Mul 1201 81 1077; Sub 1213 1213 1201; Add 1501 1501 1213;
  Add 1501 1242 1501; Mul 1213 269 1501; Mul 1213 275 1213; Mul 1201 79 1251; Mul 1196 85 1093;
  Add 1201 1201 1196; Mul 1196 102 1292; Sub 1201 1201 1196; Mul 1121 272 1201; Add 1213 1213 1121;
  Sub 1213 1417 1213; Mul 1121 258 1213; Add 1502 1689 1121; Mul 1270 254 1693; Mul 1021 265 1697;
  Add 1270 1270 1021; Mul 1021 216 1656; Mul 1608 259 1077; Sub 1021 1021 1608; Mul 1608 257 1110;
  Mul 1182 273 1207; Add 1608 1608 1182; Add 1021 1021 1608; Add 1270 1270 1021; Mul 1021 213 1270;
  Mul 1608 284 1021; Mul 1182 253 1310; Mul 1572 262 1512; Add 1182 1182 1572; Mul 1595 215 1595;
  Mul 1572 267 1420; Add 1595 1595 1572; Sub 1182 1182 1595; Mul 1595 95 1077; Mul 1572 135 1693;
  Add 1595 1595 1572; Add 1182 1182 1595; Mul 1595 79 1512; Mul 1572 85 1568; Mul 1480 81 1420;
  Sub 1572 1572 1480; Add 1595 1595 1572; Mul 1572 102 1241; Mul 1480 108 1420; Add 1572 1572 1480;
  Sub 1595 1595 1572; Mul 1480 269 1595; Mul 1257 275 1480; Mul 1361 283 1201; Add 1257 1257 1361;
  Sub 1257 1182 1257; Mul 1361 279 1257; Add 1338 1608 1361; Sub 1505 1502 1338; Mul 1233 292 1201;
  Mul 1019 288 1093; Mul 1091 287 1524; Mul 1662 108 1177; Mul 1300 9 1662; Add 1091 1091 1300;
  Mul 1300 102 1135; Mul 1500 108 1396; Add 1300 1300 1500; Mul 1500 8 1300; Mul 1461 289 1024;
  Sub 1500 1500 1461; Sub 1091 1091 1500; Mul 1500 264 1091; Add 1019 1019 1500; Mul 1500 291 1251;
  Mul 1662 8 1662; Mul 1461 287 1024; Sub 1662 1662 1461; Mul 1461 289 1524; Mul 1300 9 1300;
  Add 1461 1461 1300; Add 1662 1662 1461; Mul 1461 261 1662; Add 1500 1500 1461; Sub 1019 1019 1500;
  Mul 1500 281 1270; Mul 1461 278 1572; Sub 1500 1500 1461; Mul 1461 255 1242; Mul 1300 270 1603;
  Add 1461 1461 1300; Sub 1500 1500 1461; Add 1019 1019 1500; Mul 1500 213 1019; Mul 1500 269 1500;
  Mul 1461 275 1500; Add 1300 1233 1461; Mul 1349 288 1568; Mul 1134 256 1091; Add 1349 1349 1134;
  Mul 1134 295 1420; Mul 1440 102 1177; Mul 1547 215 1440; Add 1134 1134 1547; Sub 1349 1349 1134;
  Mul 1134 291 1512; Mul 1547 253 1662; Add 1134 1134 1547; Sub 1349 1349 1134; Mul 1134 296 1242;
  Mul 1547 254 1251; Mul 1523 261 1697; Add 1547 1547 1523; Mul 1523 257 1093; Mul 1281 264 1207;
  Add 1523 1523 1281; Add 1547 1547 1523; Mul 1523 270 1547; Add 1134 1134 1523; Mul 1523 274 1270;
  Mul 1281 278 1196; Sub 1523 1523 1281; Sub 1134 1134 1523; Add 1349 1349 1134; Mul 1134 213 1349;
  Mul 1134 269 1134; Mul 1523 282 1134; Mul 1281 297 1595; Add 1355 1523 1281].
Definition casadi_f0_410 : list instruction := [
  Mul 1452 216 1440; Mul 1621 295 1077; Sub 1452 1452 1621; Mul 1621 288 1110; Mul 1321 273 1091;
  Add 1621 1621 1321; Add 1452 1452 1621; Mul 1621 291 1693; Mul 1321 265 1662; Add 1621 1621 1321;
  Sub 1452 1452 1621; Mul 1621 274 1603; Mul 1321 255 1196; Sub 1621 1621 1321; Mul 1321 281 1547;
  Mul 1314 296 1572; Sub 1321 1321 1314; Sub 1621 1621 1321; Add 1452 1452 1621; Mul 1621 213 1452;
  Mul 1621 269 1621; Mul 1321 271 1621; Mul 1314 300 1501; Add 1369 1321 1314; Add 1461 1461 1233;
  Add 1233 1369 1461; Add 1355 1355 1233; Sub 1686 1300 1355; Add 1281 1281 1523; Add 1314 1314 1321;
  Add 1300 1314 1300; Add 1281 1281 1300; Sub 1461 1461 1281; Add 1686 1686 1461; Add 1361 1361 1608;
  Add 1121 1121 1689; Sub 1689 1361 1121; Add 1686 1686 1689; Sub 1505 1505 1686; Mul 1686 66 1512;
  Mul 1689 253 1683; Sub 1686 1686 1689; Mul 1689 53 1568; Mul 1608 256 1392; Add 1689 1689 1608;
  Sub 1686 1686 1689; Mul 1689 308 1686; Mul 1608 66 1697; Mul 1461 254 1683; Sub 1608 1608 1461;
  Mul 1461 257 1392; Mul 1321 53 1207; Add 1461 1461 1321; Sub 1608 1608 1461; Mul 1461 304 1608;
  Add 1689 1689 1461; Mul 1461 53 1512; Mul 1321 253 1392; Add 1461 1461 1321; Mul 1321 66 1568;
  Mul 1523 256 1683; Sub 1321 1321 1523; Add 1461 1461 1321; Mul 1321 311 1461; Mul 1523 254 1392;
  Mul 1558 53 1697; Add 1523 1523 1558; Mul 1558 66 1207; Mul 1129 257 1683; Sub 1558 1558 1129;
  Add 1523 1523 1558; Mul 1558 310 1523; Add 1321 1321 1558; Mul 1558 313 1420; Add 1129 1562 1656;
  Mul 1358 215 1129; Add 1558 1558 1358; Sub 1321 1321 1558; Add 1689 1689 1321; Mul 1321 213 1689;
  Mul 1558 330 1321; Mul 1358 66 1251; Mul 1673 261 1683; Sub 1358 1358 1673; Mul 1673 53 1093;
  Mul 1195 264 1392; Add 1673 1673 1195; Sub 1358 1358 1673; Mul 1673 314 1358; Mul 1195 53 1251;
  Mul 1221 261 1392; Add 1195 1195 1221; Mul 1221 66 1093; Mul 1363 264 1683; Sub 1221 1221 1363;
  Add 1195 1195 1221; Mul 1221 317 1195; Add 1673 1673 1221; Mul 1221 319 1673; Mul 1363 66 1693;
  Mul 1425 265 1683; Sub 1363 1363 1425; Mul 1425 53 1110; Mul 1601 273 1392; Add 1425 1425 1601;
  Sub 1363 1363 1425; Mul 1425 316 1363; Add 1221 1221 1425; Mul 1425 128 1358; Mul 1601 322 1195;
  Add 1425 1425 1601; Mul 1601 216 1425; Mul 1557 321 1077; Sub 1601 1601 1557; Add 1221 1221 1601;
  Mul 1601 131 1686; Mul 1557 68 1420; Add 1601 1601 1557; Sub 1221 1221 1601; Mul 1601 91 1693;
  Mul 1557 86 1110; Add 1601 1601 1557; Add 1601 1242 1601; Mul 1557 61 1363; Mul 1602 53 1693;
  Mul 1084 265 1392; Add 1602 1602 1084; Mul 1084 66 1110; Mul 1528 273 1683; Sub 1084 1084 1528;
  Add 1602 1602 1084; Mul 1084 54 1602; Mul 1528 47 1077; Sub 1084 1084 1528; Add 1557 1557 1084;
  Add 1557 1601 1557; Mul 1084 323 1557; Mul 1084 329 1084; Mul 1528 91 1251; Mul 1093 86 1093;
  Add 1528 1528 1093; Sub 1528 1528 1196; Mul 1093 61 1358; Mul 1510 54 1195; Add 1093 1093 1510;
  Add 1093 1528 1093; Mul 1510 326 1093; Add 1084 1084 1510; Sub 1084 1221 1084].
Definition casadi_f0_411 : list instruction := [
  Mul 1510 312 1084; Add 1052 1558 1510; Mul 1200 308 1363; Mul 1378 319 1608; Add 1200 1200 1378;
  Mul 1378 216 1129; Mul 1467 313 1077; Sub 1378 1378 1467; Mul 1467 311 1602; Mul 1380 327 1523;
  Add 1467 1467 1380; Add 1378 1378 1467; Add 1200 1200 1378; Mul 1378 213 1200; Mul 1467 338 1378;
  Mul 1380 304 1673; Mul 1597 316 1686; Add 1380 1380 1597; Mul 1425 215 1425; Mul 1597 321 1420;
  Add 1425 1425 1597; Sub 1380 1380 1425; Mul 1425 68 1077; Mul 1597 131 1363; Add 1425 1425 1597;
  Add 1380 1380 1425; Mul 1425 91 1512; Mul 1568 86 1568; Add 1425 1425 1568; Sub 1425 1425 1572;
  Mul 1568 61 1686; Mul 1597 54 1461; Mul 1654 47 1420; Sub 1597 1597 1654; Add 1568 1568 1597;
  Add 1568 1425 1568; Mul 1597 323 1568; Mul 1654 329 1597; Mul 1511 337 1093; Add 1654 1654 1511;
  Sub 1654 1380 1654; Mul 1511 333 1654; Add 1550 1467 1511; Sub 1494 1052 1550; Mul 1244 346 1093;
  Mul 1439 342 1358; Mul 1289 86 1656; Sub 1289 1289 1662; Mul 1662 66 1289; Mul 1457 341 1683;
  Sub 1662 1662 1457; Mul 1457 343 1392; Mul 1656 91 1656; Sub 1091 1091 1656; Mul 1656 53 1091;
  Add 1457 1457 1656; Sub 1662 1662 1457; Mul 1457 315 1662; Add 1439 1439 1457; Mul 1457 345 1195;
  Mul 1656 341 1392; Mul 1289 53 1289; Add 1656 1656 1289; Mul 1091 66 1091; Mul 1289 343 1683;
  Sub 1091 1091 1289; Add 1656 1656 1091; Mul 1091 318 1656; Add 1457 1457 1091; Add 1439 1439 1457;
  Mul 1457 332 1425; Mul 1091 335 1200; Add 1457 1457 1091; Mul 1091 309 1601; Mul 1289 324 1689;
  Add 1091 1091 1289; Sub 1457 1457 1091; Add 1439 1439 1457; Mul 1457 213 1439; Mul 1457 323 1457;
  Mul 1091 329 1457; Add 1289 1244 1091; Mul 1315 342 1686; Mul 1118 304 1662; Add 1315 1315 1118;
  Mul 1118 345 1461; Mul 1152 310 1656; Add 1118 1118 1152; Mul 1152 350 1420; Mul 1697 86 1697;
  Mul 1207 91 1207; Sub 1697 1697 1207; Sub 1440 1440 1697; Mul 1697 215 1440; Add 1152 1152 1697;
  Sub 1118 1118 1152; Add 1315 1315 1118; Mul 1118 349 1601; Mul 1152 308 1358; Mul 1697 315 1608;
  Add 1152 1152 1697; Mul 1697 311 1195; Mul 1207 318 1523; Add 1697 1697 1207; Add 1152 1152 1697;
  Mul 1697 324 1152; Add 1118 1118 1697; Mul 1697 332 1528; Mul 1207 328 1200; Add 1697 1697 1207;
  Sub 1118 1118 1697; Add 1315 1315 1118; Mul 1118 213 1315; Mul 1118 323 1118; Mul 1697 336 1118;
  Mul 1207 351 1568; Add 1114 1697 1207; Mul 1620 342 1363; Mul 1441 319 1662; Add 1620 1620 1441;
  Mul 1441 216 1440; Mul 1348 350 1077; Sub 1441 1441 1348; Mul 1348 345 1602; Mul 1447 327 1656;
  Add 1348 1348 1447; Add 1441 1441 1348; Add 1620 1620 1441; Mul 1441 309 1528; Mul 1348 328 1689;
  Add 1441 1441 1348; Mul 1348 349 1425; Mul 1447 335 1152; Add 1348 1348 1447; Sub 1441 1441 1348;
  Add 1620 1620 1441; Mul 1441 213 1620; Mul 1441 323 1441; Mul 1348 325 1441; Mul 1447 354 1557;
  Add 1164 1348 1447; Add 1091 1091 1244; Add 1244 1164 1091; Add 1114 1114 1244; Sub 1443 1289 1114;
  Add 1207 1207 1697; Add 1447 1447 1348; Add 1289 1447 1289; Add 1207 1207 1289].
Definition casadi_f0_412 : list instruction := [
  Sub 1091 1091 1207; Add 1443 1443 1091; Add 1511 1511 1467; Add 1510 1510 1558; Sub 1558 1511 1510;
  Add 1443 1443 1558; Sub 1494 1494 1443; Mul 1443 19 1686; Mul 1558 304 1136; Sub 1443 1443 1558;
  Mul 1558 35 1420; Mul 1467 215 1410; Add 1558 1558 1467; Add 1443 1443 1558; Mul 1558 362 1443;
  Mul 1467 19 1608; Mul 1091 308 1136; Sub 1467 1467 1091; Mul 1091 313 1410; Mul 1348 35 1129;
  Add 1091 1091 1348; Sub 1467 1467 1091; Mul 1091 358 1467; Add 1558 1558 1091; Mul 1091 35 1686;
  Mul 1348 304 1410; Add 1091 1091 1348; Mul 1348 19 1420; Mul 1697 215 1136; Sub 1348 1348 1697;
  Sub 1091 1091 1348; Mul 1348 365 1091; Mul 1697 308 1410; Mul 1481 35 1608; Add 1697 1697 1481;
  Mul 1481 19 1129; Mul 1387 313 1136; Sub 1481 1481 1387; Add 1697 1697 1481; Mul 1481 364 1697;
  Add 1348 1348 1481; Mul 1481 367 1461; Sub 1387 1523 1117; Mul 1456 310 1387; Add 1481 1481 1456;
  Add 1348 1348 1481; Add 1558 1558 1348; Mul 1348 213 1558; Mul 1481 385 1348; Mul 1456 19 1358;
  Mul 1277 315 1136; Sub 1456 1456 1277; Mul 1277 368 1456; Mul 1606 35 1358; Mul 1086 315 1410;
  Add 1606 1606 1086; Mul 1086 39 1606; Mul 1635 373 1195; Add 1086 1086 1635; Add 1277 1277 1086;
  Mul 1086 372 1277; Mul 1635 19 1363; Mul 1156 319 1136; Sub 1635 1635 1156; Mul 1156 216 1410;
  Mul 1326 35 1077; Sub 1156 1156 1326; Sub 1635 1635 1156; Mul 1156 370 1635; Add 1086 1086 1156;
  Mul 1156 39 1456; Mul 1326 376 1606; Add 1156 1156 1326; Mul 1326 377 1156; Mul 1131 35 1363;
  Mul 1209 319 1410; Add 1131 1131 1209; Mul 1209 19 1077; Mul 1551 216 1136; Add 1209 1209 1551;
  Sub 1131 1131 1209; Mul 1209 375 1131; Add 1326 1326 1209; Add 1086 1086 1326; Mul 1326 69 1091;
  Add 1086 1086 1326; Mul 1326 62 1363; Mul 1209 55 1602; Mul 1551 48 1077; Sub 1209 1209 1551;
  Add 1326 1326 1209; Add 1326 1601 1326; Mul 1209 380 1635; Mul 1551 24 1131; Mul 1225 31 1602;
  Add 1551 1551 1225; Add 1209 1209 1551; Add 1209 1326 1209; Mul 1551 378 1209; Mul 1551 384 1551;
  Mul 1225 62 1358; Mul 1587 55 1195; Add 1225 1225 1587; Add 1225 1528 1225; Mul 1587 380 1456;
  Mul 1607 24 1606; Mul 1544 31 1195; Add 1607 1607 1544; Add 1587 1587 1607; Add 1587 1225 1587;
  Mul 1607 382 1587; Add 1551 1551 1607; Sub 1551 1086 1551; Mul 1607 366 1551; Add 1544 1481 1607;
  Mul 1478 362 1635; Mul 1151 372 1467; Add 1478 1478 1151; Mul 1151 365 1131; Mul 1108 377 1697;
  Add 1151 1151 1108; Mul 1108 367 1602; Mul 1223 327 1387; Add 1108 1108 1223; Add 1151 1151 1108;
  Add 1478 1478 1151; Mul 1151 213 1478; Mul 1108 393 1151; Mul 1223 358 1277; Mul 1150 370 1443;
  Add 1223 1223 1150; Mul 1150 364 1156; Mul 1350 375 1091; Add 1150 1150 1350; Add 1223 1223 1150;
  Mul 1150 69 1131; Sub 1223 1223 1150; Mul 1150 62 1686; Mul 1350 55 1461; Mul 1365 48 1420;
  Sub 1350 1350 1365; Add 1150 1150 1350; Add 1150 1425 1150; Mul 1350 380 1443; Mul 1365 24 1091;
  Mul 1370 31 1461; Add 1365 1365 1370; Add 1350 1350 1365; Add 1350 1150 1350].
Definition casadi_f0_413 : list instruction := [
  Mul 1365 378 1350; Mul 1370 384 1365; Mul 1651 392 1587; Add 1370 1370 1651; Sub 1370 1223 1370;
  Mul 1651 388 1370; Add 1660 1108 1651; Sub 1243 1544 1660; Mul 1504 401 1587; Mul 1613 397 1456;
  Mul 1628 48 1523; Mul 1176 55 1129; Sub 1628 1628 1176; Sub 1662 1662 1628; Mul 1628 19 1662;
  Mul 1176 396 1136; Sub 1628 1628 1176; Mul 1176 398 1410; Mul 1324 55 1608; Mul 1523 62 1523;
  Sub 1324 1324 1523; Sub 1440 1440 1324; Mul 1324 35 1440; Add 1176 1176 1324; Sub 1628 1628 1176;
  Mul 1176 369 1628; Add 1613 1613 1176; Mul 1176 400 1606; Mul 1324 396 1410; Mul 1662 35 1662;
  Add 1324 1324 1662; Mul 1440 19 1440; Mul 1662 398 1136; Sub 1440 1440 1662; Add 1324 1324 1440;
  Mul 1440 371 1324; Add 1176 1176 1440; Mul 1440 402 1195; Mul 1129 62 1129; Mul 1608 48 1608;
  Sub 1129 1129 1608; Sub 1656 1656 1129; Mul 1129 318 1656; Add 1440 1440 1129; Add 1176 1176 1440;
  Add 1613 1613 1176; Mul 1176 387 1150; Mul 1440 390 1478; Add 1176 1176 1440; Mul 1440 363 1326;
  Mul 1129 379 1558; Add 1440 1440 1129; Sub 1176 1176 1440; Add 1613 1613 1176; Mul 1176 213 1613;
  Mul 1176 378 1176; Mul 1440 384 1176; Add 1129 1504 1440; Mul 1608 397 1443; Mul 1662 358 1628;
  Add 1608 1608 1662; Mul 1662 400 1091; Mul 1523 364 1324; Add 1662 1662 1523; Mul 1523 402 1461;
  Mul 1507 310 1656; Add 1523 1523 1507; Add 1662 1662 1523; Add 1608 1608 1662; Mul 1662 405 1326;
  Mul 1523 362 1456; Mul 1507 369 1467; Add 1523 1523 1507; Mul 1507 365 1606; Mul 1567 371 1697;
  Add 1507 1507 1567; Mul 1567 367 1195; Mul 1525 318 1387; Add 1567 1567 1525; Add 1507 1507 1567;
  Add 1523 1523 1507; Mul 1507 379 1523; Add 1662 1662 1507; Mul 1507 387 1225; Mul 1567 383 1478;
  Add 1507 1507 1567; Sub 1662 1662 1507; Add 1608 1608 1662; Mul 1662 213 1608; Mul 1662 378 1662;
  Mul 1507 391 1662; Mul 1567 406 1350; Add 1525 1507 1567; Mul 1128 397 1635; Mul 1625 372 1628;
  Add 1128 1128 1625; Mul 1625 400 1131; Mul 1259 377 1324; Add 1625 1625 1259; Mul 1259 402 1602;
  Mul 1386 327 1656; Add 1259 1259 1386; Add 1625 1625 1259; Add 1128 1128 1625; Mul 1625 363 1225;
  Mul 1259 383 1558; Add 1625 1625 1259; Mul 1259 405 1150; Mul 1386 390 1523; Add 1259 1259 1386;
  Sub 1625 1625 1259; Add 1128 1128 1625; Mul 1625 213 1128; Mul 1625 378 1625; Mul 1259 381 1625;
  Mul 1386 409 1209; Add 1682 1259 1386; Add 1440 1440 1504; Add 1504 1682 1440; Add 1525 1525 1504;
  Sub 1694 1129 1525; Add 1567 1567 1507; Add 1386 1386 1259; Add 1129 1386 1129; Add 1567 1567 1129;
  Sub 1440 1440 1567; Add 1694 1694 1440; Add 1651 1651 1108; Add 1607 1607 1481; Sub 1481 1651 1607;
  Add 1694 1694 1481; Sub 1243 1243 1694; Mul 1694 413 1443; Sub 1481 1467 1217; Mul 1108 358 1481;
  Add 1694 1694 1108; Mul 1108 16 1091; Mul 1440 364 1053; Sub 1108 1108 1440; Mul 1440 15 1461;
  Mul 1259 310 1234; Add 1440 1440 1259; Sub 1108 1108 1440; Mul 1440 419 1108; Mul 1259 16 1697;
  Mul 1507 365 1053; Sub 1259 1259 1507; Mul 1507 367 1234; Mul 1227 15 1387].
Definition casadi_f0_414 : list instruction := [
  Add 1507 1507 1227; Sub 1259 1259 1507; Mul 1507 418 1259; Add 1440 1440 1507; Mul 1507 15 1091;
  Mul 1227 364 1234; Add 1507 1507 1227; Mul 1227 16 1461; Mul 1616 310 1053; Sub 1227 1227 1616;
  Add 1507 1507 1227; Mul 1227 422 1507; Mul 1616 365 1234; Mul 1543 15 1697; Add 1616 1616 1543;
  Mul 1543 16 1387; Mul 1527 367 1053; Sub 1543 1543 1527; Add 1616 1616 1543; Mul 1543 421 1616;
  Add 1227 1227 1543; Add 1440 1440 1227; Add 1694 1694 1440; Mul 1440 213 1694; Mul 1227 439 1440;
  Mul 1543 423 1456; Mul 1527 16 1606; Mul 1354 371 1053; Sub 1527 1527 1354; Mul 1354 15 1195;
  Mul 1124 318 1234; Add 1354 1354 1124; Sub 1527 1527 1354; Mul 1354 40 1527; Mul 1124 15 1606;
  Mul 1302 371 1234; Add 1124 1124 1302; Mul 1302 16 1195; Mul 1317 318 1053; Sub 1302 1302 1317;
  Add 1124 1124 1302; Mul 1302 42 1124; Add 1354 1354 1302; Add 1543 1543 1354; Mul 1354 372 1543;
  Mul 1302 424 1635; Add 1354 1354 1302; Mul 1302 40 1456; Mul 1317 14 1527; Mul 1631 18 1124;
  Add 1317 1317 1631; Add 1302 1302 1317; Mul 1317 429 1302; Mul 1631 16 1131; Mul 1104 377 1053;
  Sub 1631 1631 1104; Mul 1104 15 1602; Mul 1403 327 1234; Add 1104 1104 1403; Sub 1631 1631 1104;
  Mul 1104 428 1631; Add 1317 1317 1104; Add 1354 1354 1317; Mul 1317 43 1108; Mul 1104 431 1443;
  Sub 1317 1317 1104; Add 1354 1354 1317; Mul 1317 198 1635; Mul 1104 25 1131; Mul 1403 32 1602;
  Add 1104 1104 1403; Add 1317 1317 1104; Add 1317 1326 1317; Mul 1104 433 1635; Mul 1403 26 1631;
  Mul 1051 15 1131; Mul 1253 377 1234; Add 1051 1051 1253; Mul 1253 16 1602; Mul 1574 327 1053;
  Sub 1253 1253 1574; Add 1051 1051 1253; Mul 1253 28 1051; Add 1403 1403 1253; Add 1104 1104 1403;
  Add 1104 1317 1104; Mul 1403 430 1104; Mul 1403 438 1403; Mul 1253 198 1456; Mul 1574 25 1606;
  Mul 1327 32 1195; Add 1574 1574 1327; Add 1253 1253 1574; Add 1253 1225 1253; Mul 1574 433 1456;
  Mul 1327 26 1527; Mul 1476 28 1124; Add 1327 1327 1476; Add 1574 1574 1327; Add 1574 1253 1574;
  Mul 1327 435 1574; Add 1403 1403 1327; Sub 1403 1354 1403; Mul 1327 420 1403; Add 1476 1227 1327;
  Mul 1690 413 1635; Mul 1318 372 1481; Add 1690 1690 1318; Mul 1318 419 1631; Mul 1325 429 1259;
  Add 1318 1318 1325; Mul 1325 422 1051; Mul 1687 436 1616; Add 1325 1325 1687; Add 1318 1318 1325;
  Add 1690 1690 1318; Mul 1318 213 1690; Mul 1325 447 1318; Mul 1687 358 1543; Mul 1205 424 1443;
  Add 1687 1687 1205; Mul 1205 418 1302; Mul 1535 428 1108; Add 1205 1205 1535; Add 1687 1687 1205;
  Mul 1205 43 1631; Mul 1535 431 1635; Sub 1205 1205 1535; Sub 1687 1687 1205; Mul 1205 198 1443;
  Mul 1535 25 1091; Mul 1433 32 1461; Add 1535 1535 1433; Add 1205 1205 1535; Add 1205 1150 1205;
  Mul 1535 433 1443; Mul 1433 26 1108; Mul 1179 28 1507; Add 1433 1433 1179; Add 1535 1535 1433;
  Add 1535 1205 1535; Mul 1433 430 1535; Mul 1179 438 1433; Mul 1191 446 1574; Add 1179 1179 1191;
  Sub 1179 1687 1179; Mul 1191 442 1179; Add 1060 1325 1191; Sub 1163 1476 1060].
Definition casadi_f0_415 : list instruction := [
  Mul 1032 455 1574; Mul 1167 450 1456; Mul 1301 25 1387; Mul 1376 32 1697; Sub 1301 1301 1376;
  Sub 1628 1628 1301; Mul 1301 369 1628; Add 1167 1167 1301; Mul 1301 453 1527; Mul 1376 32 1467;
  Mul 1387 198 1387; Sub 1376 1376 1387; Sub 1324 1324 1376; Mul 1376 16 1324; Mul 1387 452 1053;
  Sub 1376 1376 1387; Mul 1387 454 1234; Mul 1697 198 1697; Mul 1467 25 1467; Sub 1697 1697 1467;
  Sub 1656 1656 1697; Mul 1697 15 1656; Add 1387 1387 1697; Sub 1376 1376 1387; Mul 1387 425 1376;
  Add 1301 1301 1387; Mul 1387 456 1124; Mul 1697 452 1234; Mul 1324 15 1324; Add 1697 1697 1324;
  Mul 1656 16 1656; Mul 1324 454 1053; Sub 1656 1656 1324; Add 1697 1697 1656; Mul 1656 427 1697;
  Add 1387 1387 1656; Add 1301 1301 1387; Add 1167 1167 1301; Mul 1301 441 1205; Mul 1387 444 1690;
  Add 1301 1301 1387; Mul 1387 417 1317; Mul 1656 432 1694; Add 1387 1387 1656; Sub 1301 1301 1387;
  Add 1167 1167 1301; Mul 1301 213 1167; Mul 1301 430 1301; Mul 1387 438 1301; Add 1656 1032 1387;
  Mul 1324 450 1443; Mul 1467 358 1628; Add 1324 1324 1467; Mul 1467 453 1108; Mul 1432 418 1376;
  Add 1467 1467 1432; Mul 1507 456 1507; Mul 1432 421 1697; Add 1507 1507 1432; Add 1467 1467 1507;
  Add 1324 1324 1467; Mul 1467 459 1317; Mul 1507 413 1456; Mul 1481 369 1481; Add 1507 1507 1481;
  Mul 1481 419 1527; Mul 1259 425 1259; Add 1481 1481 1259; Mul 1124 422 1124; Mul 1616 427 1616;
  Add 1124 1124 1616; Add 1481 1481 1124; Add 1507 1507 1481; Mul 1481 432 1507; Add 1467 1467 1481;
  Mul 1481 441 1253; Mul 1124 437 1690; Add 1481 1481 1124; Sub 1467 1467 1481; Add 1324 1324 1467;
  Mul 1467 213 1324; Mul 1467 430 1467; Mul 1481 445 1467; Mul 1124 460 1535; Add 1616 1481 1124;
  Mul 1259 450 1635; Mul 1628 372 1628; Add 1259 1259 1628; Mul 1628 453 1631; Mul 1376 429 1376;
  Add 1628 1628 1376; Mul 1376 456 1051; Mul 1697 436 1697; Add 1376 1376 1697; Add 1628 1628 1376;
  Add 1259 1259 1628; Mul 1628 417 1253; Mul 1376 437 1694; Add 1628 1628 1376; Mul 1376 459 1205;
  Mul 1697 444 1507; Add 1376 1376 1697; Sub 1628 1628 1376; Add 1259 1259 1628; Mul 1628 213 1259;
  Mul 1628 430 1628; Mul 1376 434 1628; Mul 1697 463 1104; Add 1432 1376 1697; Add 1387 1387 1032;
  Add 1032 1432 1387; Add 1616 1616 1032; Sub 1573 1656 1616; Add 1124 1124 1481; Add 1697 1697 1376;
  Add 1656 1697 1656; Add 1124 1124 1656; Sub 1387 1387 1124; Add 1573 1573 1387; Add 1191 1191 1325;
  Add 1327 1327 1227; Sub 1227 1191 1327; Add 1573 1573 1227; Sub 1163 1163 1573; Add 1243 1243 1163;
  Add 1494 1494 1243; Add 1505 1505 1494; Add 1298 1298 1505; Mul 1298 0 1298; Mul 1505 235 1470;
  Add 1298 1298 1505; Mul 1310 261 1310; Mul 1505 262 1251; Add 1310 1310 1505; Mul 1673 315 1673;
  Mul 1505 316 1358; Add 1673 1673 1505; Mul 1277 369 1277; Mul 1505 370 1456; Add 1277 1277 1505;
  Mul 1156 371 1156; Mul 1505 375 1606; Add 1156 1156 1505; Add 1277 1277 1156; Mul 1543 369 1543;
  Mul 1156 424 1456; Add 1543 1543 1156; Mul 1302 425 1302; Mul 1156 428 1527].
Definition casadi_f0_416 : list instruction := [
  Add 1302 1302 1156; Add 1543 1543 1302; Add 1302 1277 1543; Sub 1156 1350 1535; Mul 1505 480 1156;
  Sub 1494 1209 1104; Mul 1573 1197 1494; Add 1227 1505 1573; Mul 1227 20 1227; Add 1302 1302 1227;
  Add 1227 1673 1302; Mul 1325 485 1350; Mul 1387 50 1535; Add 1325 1325 1387; Sub 1387 1568 1325;
  Mul 1376 487 1387; Mul 1481 485 1209; Mul 1081 50 1104; Add 1481 1481 1081; Sub 1081 1557 1481;
  Mul 1575 1286 1081; Add 1611 1376 1575; Mul 1611 37 1611; Add 1227 1227 1611; Add 1611 1310 1227;
  Mul 1055 493 1568; Mul 1267 83 1325; Add 1055 1055 1267; Sub 1267 1595 1055; Mul 1563 495 1267;
  Mul 1449 493 1557; Mul 1691 83 1481; Add 1449 1449 1691; Sub 1691 1501 1449; Mul 1570 1294 1691;
  Add 1384 1563 1570; Mul 1384 80 1384; Add 1611 1611 1384; Mul 1384 237 1292; Mul 1261 113 1261;
  Sub 1384 1384 1261; Sub 1261 1611 1384; Mul 1082 501 1501; Mul 1645 104 1449; Add 1082 1082 1645;
  Sub 1645 1506 1082; Mul 1421 1299 1645; Mul 1493 501 1595; Mul 1406 104 1055; Add 1493 1493 1406;
  Add 1406 1571 1493; Mul 1231 503 1406; Sub 1442 1421 1231; Mul 1442 100 1442; Add 1261 1261 1442;
  Mul 1261 508 1261; Mul 1442 216 1466; Mul 1193 219 1077; Sub 1442 1442 1193; Mul 1193 215 1698;
  Mul 1395 227 1420; Add 1193 1193 1395; Add 1442 1442 1193; Mul 1193 500 1442; Add 1261 1261 1193;
  Add 1193 1223 1687; Mul 1156 20 1156; Mul 1395 512 1156; Sub 1090 1587 1574; Mul 1106 511 1090;
  Add 1395 1395 1106; Sub 1193 1193 1395; Add 1395 1380 1193; Mul 1387 37 1387; Mul 1106 516 1387;
  Mul 1362 485 1587; Mul 1079 50 1574; Add 1362 1362 1079; Sub 1079 1093 1362; Mul 1316 514 1079;
  Add 1106 1106 1316; Sub 1395 1395 1106; Add 1106 1182 1395; Mul 1267 80 1267; Mul 1316 520 1267;
  Mul 1458 493 1093; Mul 1399 83 1362; Add 1458 1458 1399; Sub 1399 1201 1458; Mul 1088 518 1399;
  Add 1316 1316 1088; Sub 1106 1106 1316; Add 1316 1258 1106; Mul 1406 100 1406; Mul 1088 524 1406;
  Mul 1146 501 1201; Mul 1477 104 1458; Add 1146 1146 1477; Add 1477 1499 1146; Mul 1653 522 1477;
  Add 1088 1088 1653; Add 1316 1316 1088; Mul 1088 526 1316; Mul 1653 221 1292; Mul 1396 113 1396;
  Add 1653 1653 1396; Mul 1177 114 1177; Mul 1396 218 1159; Sub 1177 1177 1396; Add 1653 1653 1177;
  Mul 1177 216 1653; Mul 1396 525 1077; Sub 1177 1177 1396; Mul 1396 521 1177; Add 1088 1088 1396;
  Add 1396 1086 1354; Mul 1089 20 1494; Mul 1089 512 1089; Mul 1346 529 1090; Add 1089 1089 1346;
  Sub 1396 1396 1089; Add 1089 1221 1396; Mul 1346 37 1081; Mul 1346 516 1346; Mul 1038 531 1079;
  Add 1346 1346 1038; Sub 1089 1089 1346; Add 1346 1417 1089; Mul 1038 80 1691; Mul 1038 520 1038;
  Mul 1202 533 1399; Add 1038 1038 1202; Sub 1346 1346 1038; Add 1038 1107 1346; Mul 1202 100 1645;
  Mul 1202 524 1202; Mul 1187 535 1477; Sub 1202 1202 1187; Sub 1038 1038 1202; Mul 1202 536 1038;
  Mul 1187 215 1653; Mul 1203 525 1420; Add 1187 1187 1203; Mul 1203 534 1187; Add 1202 1202 1203;
  Add 1088 1088 1202; Sub 1261 1261 1088; Mul 1088 120 1493; Mul 1202 527 1571].
Definition casadi_f0_417 : list instruction := [
  Sub 1088 1088 1202; Mul 1202 539 1088; Mul 1203 120 1146; Mul 1367 527 1499; Sub 1203 1203 1367;
  Mul 1367 526 1203; Mul 1216 538 1177; Add 1367 1367 1216; Mul 1216 508 1088; Mul 1115 537 1442;
  Add 1216 1216 1115; Add 1367 1367 1216; Mul 1216 540 1653; Mul 1115 214 1077; Mul 1372 525 1115;
  Sub 1216 1216 1372; Sub 1367 1367 1216; Mul 1367 141 1367; Mul 1372 537 1367; Add 1202 1202 1372;
  Mul 1372 527 1506; Mul 1664 120 1082; Add 1372 1372 1664; Mul 1664 546 1372; Mul 1145 544 1653;
  Mul 1232 214 1420; Mul 1076 525 1232; Add 1145 1145 1076; Mul 1076 508 1372; Mul 1692 543 1442;
  Add 1076 1076 1692; Mul 1692 536 1203; Mul 1211 538 1187; Add 1692 1692 1211; Add 1076 1076 1692;
  Sub 1076 1145 1076; Mul 1076 141 1076; Mul 1692 543 1076; Add 1664 1664 1692; Sub 1202 1202 1664;
  Add 1261 1261 1202; Mul 1202 553 1453; Mul 1664 238 1180; Mul 1162 236 1162; Mul 1692 144 1077;
  Sub 1162 1162 1692; Add 1664 1664 1162; Mul 1162 224 1664; Mul 1692 542 1180; Add 1162 1162 1692;
  Mul 1180 144 1180; Mul 1692 549 1077; Sub 1180 1180 1692; Mul 1692 216 1180; Mul 1211 548 1077;
  Sub 1692 1692 1211; Add 1162 1162 1692; Mul 1692 1334 1571; Mul 1211 1336 1499; Add 1119 1692 1211;
  Mul 1119 212 1119; Sub 1119 1162 1119; Mul 1407 249 1119; Add 1648 1202 1407; Mul 1663 556 1684;
  Mul 1664 220 1664; Mul 1241 542 1241; Sub 1664 1664 1241; Mul 1180 215 1180; Mul 1241 548 1420;
  Add 1180 1180 1241; Sub 1664 1664 1180; Mul 1180 241 1506; Mul 1303 225 1303; Sub 1180 1180 1303;
  Sub 1180 1664 1180; Mul 1303 244 1180; Add 1241 1663 1303; Sub 1648 1648 1241; Mul 1241 242 1633;
  Mul 1465 223 1499; Sub 1241 1241 1465; Mul 1465 1342 1506; Sub 1692 1465 1692; Mul 1692 212 1692;
  Sub 1692 1692 1384; Mul 1269 249 1692; Mul 1103 551 1453; Add 1529 1269 1103; Mul 1157 560 1538;
  Mul 1248 213 1653; Mul 1284 243 1248; Add 1561 1157 1284; Sub 1529 1529 1561; Add 1529 1241 1529;
  Sub 1648 1648 1529; Sub 1529 1384 1162; Mul 1561 219 1529; Mul 1113 557 1466; Add 1561 1561 1113;
  Mul 1113 227 1664; Mul 1604 555 1698; Add 1113 1113 1604; Add 1561 1561 1113; Mul 1113 525 1258;
  Mul 1604 239 1653; Add 1113 1113 1604; Add 1561 1561 1113; Mul 1113 340 1506; Mul 1604 231 1698;
  Mul 1204 227 1571; Sub 1604 1604 1204; Mul 1204 219 1506; Mul 1133 225 1466; Add 1204 1204 1133;
  Sub 1604 1604 1204; Mul 1604 212 1604; Mul 1204 225 1604; Add 1113 1113 1204; Mul 1204 242 1466;
  Mul 1133 219 1499; Sub 1204 1204 1133; Mul 1133 231 1653; Mul 1109 525 1571; Sub 1133 1133 1109;
  Sub 1204 1204 1133; Sub 1204 1279 1204; Mul 1204 212 1204; Mul 1133 242 1204; Mul 1109 559 1499;
  Sub 1133 1133 1109; Add 1113 1113 1133; Sub 1561 1561 1113; Mul 1561 213 1561; Sub 1648 1648 1561;
  Mul 1113 567 1218; Mul 1133 260 1693; Mul 1109 263 1110; Mul 1464 127 1077; Sub 1109 1109 1464;
  Add 1133 1133 1109; Mul 1109 265 1133; Mul 1464 547 1693; Add 1109 1109 1464; Mul 1693 127 1693;
  Mul 1110 268 1110; Mul 1464 563 1077; Sub 1110 1110 1464; Add 1693 1693 1110].
Definition casadi_f0_418 : list instruction := [
  Mul 1110 216 1693; Mul 1464 562 1077; Sub 1110 1110 1464; Add 1109 1109 1110; Mul 1110 1138 1595;
  Mul 1464 1357 1201; Add 1642 1110 1464; Mul 1642 269 1642; Add 1642 1109 1642; Mul 1237 258 1642;
  Add 1190 1113 1237; Mul 1586 570 1021; Mul 1133 253 1133; Mul 1512 547 1512; Add 1133 1133 1512;
  Mul 1693 215 1693; Mul 1512 562 1420; Add 1693 1693 1512; Sub 1133 1133 1693; Mul 1251 135 1251;
  Sub 1133 1133 1251; Mul 1480 271 1480; Mul 1251 283 1501; Add 1480 1480 1251; Sub 1480 1133 1480;
  Mul 1251 279 1480; Add 1693 1586 1251; Sub 1190 1190 1693; Mul 1693 300 1201; Mul 1512 275 1621;
  Add 1677 1693 1512; Mul 1644 271 1500; Mul 1074 292 1501; Add 1389 1644 1074; Add 1677 1677 1389;
  Mul 1389 1366 1501; Add 1110 1110 1389; Mul 1110 269 1110; Add 1110 1310 1110; Mul 1373 258 1110;
  Mul 1097 565 1218; Add 1383 1373 1097; Mul 1448 574 1257; Mul 1520 213 1547; Mul 1313 284 1520;
  Add 1268 1448 1313; Sub 1383 1383 1268; Add 1677 1677 1383; Sub 1190 1190 1677; Mul 1677 571 1603;
  Add 1383 1109 1310; Mul 1268 255 1383; Sub 1677 1677 1268; Mul 1268 278 1133; Mul 1344 569 1270;
  Add 1268 1268 1344; Add 1677 1677 1268; Mul 1268 296 1182; Mul 1344 280 1547; Add 1268 1268 1344;
  Add 1677 1677 1268; Mul 1268 471 1501; Mul 1344 278 1595; Mul 1696 282 1270; Add 1344 1344 1696;
  Mul 1696 255 1501; Mul 1409 271 1603; Add 1696 1696 1409; Sub 1344 1344 1696; Sub 1344 1019 1344;
  Mul 1344 269 1344; Mul 1696 271 1344; Add 1268 1268 1696; Mul 1696 573 1201; Mul 1409 255 1201;
  Mul 1154 275 1603; Add 1409 1409 1154; Mul 1154 296 1595; Mul 1305 282 1547; Add 1154 1154 1305;
  Sub 1409 1409 1154; Sub 1409 1452 1409; Mul 1409 269 1409; Mul 1154 275 1409; Add 1696 1696 1154;
  Sub 1268 1268 1696; Add 1677 1677 1268; Mul 1677 213 1677; Sub 1190 1190 1677; Mul 1268 581 1321;
  Mul 1696 314 1363; Mul 1154 317 1602; Mul 1305 128 1077; Sub 1154 1154 1305; Add 1696 1696 1154;
  Mul 1154 319 1696; Mul 1305 561 1363; Add 1154 1154 1305; Mul 1363 128 1363; Mul 1305 322 1602;
  Mul 1487 577 1077; Sub 1305 1305 1487; Add 1363 1363 1305; Mul 1305 216 1363; Mul 1487 576 1077;
  Sub 1305 1305 1487; Add 1154 1154 1305; Mul 1305 1379 1568; Mul 1487 1381 1093; Add 1274 1305 1487;
  Mul 1274 323 1274; Add 1274 1154 1274; Mul 1368 312 1274; Add 1424 1268 1368; Mul 1492 584 1378;
  Mul 1696 304 1696; Mul 1686 561 1686; Add 1696 1696 1686; Mul 1363 215 1363; Mul 1686 576 1420;
  Add 1363 1363 1686; Sub 1696 1696 1363; Mul 1358 131 1358; Sub 1696 1696 1358; Mul 1597 325 1597;
  Mul 1358 337 1557; Add 1597 1597 1358; Sub 1597 1696 1597; Mul 1358 333 1597; Add 1363 1492 1358;
  Sub 1424 1424 1363; Mul 1363 354 1093; Mul 1686 329 1441; Add 1149 1363 1686; Mul 1388 325 1457;
  Mul 1474 346 1557; Add 1297 1388 1474; Add 1149 1149 1297; Mul 1297 1390 1557; Add 1305 1305 1297;
  Mul 1305 323 1305; Add 1305 1673 1305; Mul 1130 312 1305; Mul 1640 579 1321; Add 1564 1130 1640;
  Mul 1352 588 1654; Mul 1431 213 1152; Mul 1092 338 1431; Add 1641 1352 1092].
Definition casadi_f0_419 : list instruction := [
  Sub 1564 1564 1641; Add 1149 1149 1564; Sub 1424 1424 1149; Mul 1149 585 1689; Add 1564 1154 1673;
  Mul 1641 309 1564; Sub 1149 1149 1641; Mul 1641 332 1696; Mul 1652 583 1200; Add 1641 1641 1652;
  Add 1149 1149 1641; Mul 1641 349 1380; Mul 1652 334 1152; Add 1641 1641 1652; Add 1149 1149 1641;
  Mul 1641 473 1557; Mul 1652 332 1568; Mul 1285 336 1200; Add 1652 1652 1285; Mul 1285 309 1557;
  Mul 1423 325 1689; Add 1285 1285 1423; Sub 1652 1652 1285; Sub 1652 1439 1652; Mul 1652 323 1652;
  Mul 1285 325 1652; Add 1641 1641 1285; Mul 1285 587 1093; Mul 1423 309 1093; Mul 1427 329 1689;
  Add 1423 1423 1427; Mul 1427 349 1568; Mul 1482 336 1152; Add 1427 1427 1482; Sub 1423 1423 1427;
  Sub 1423 1620 1423; Mul 1423 323 1423; Mul 1427 329 1423; Add 1285 1285 1427; Sub 1641 1641 1285;
  Add 1149 1149 1641; Mul 1149 213 1149; Sub 1424 1424 1149; Mul 1641 594 1348; Mul 1285 368 1635;
  Mul 1427 39 1131; Mul 1482 373 1602; Add 1427 1427 1482; Add 1285 1285 1427; Mul 1427 372 1285;
  Mul 1482 575 1635; Add 1427 1427 1482; Mul 1482 39 1635; Mul 1034 376 1131; Add 1482 1482 1034;
  Mul 1034 377 1482; Mul 1131 590 1131; Add 1034 1034 1131; Add 1427 1427 1034; Mul 1034 1404 1350;
  Mul 1131 1405 1587; Add 1605 1034 1131; Mul 1605 378 1605; Add 1605 1427 1605; Mul 1667 366 1605;
  Add 1518 1641 1667; Mul 1497 597 1151; Mul 1285 358 1285; Mul 1143 575 1443; Add 1285 1285 1143;
  Mul 1482 364 1482; Mul 1091 590 1091; Add 1482 1482 1091; Add 1285 1285 1482; Mul 1606 69 1606;
  Add 1285 1285 1606; Mul 1365 381 1365; Mul 1606 392 1209; Add 1365 1365 1606; Sub 1365 1285 1365;
  Mul 1606 388 1365; Add 1482 1497 1606; Sub 1518 1518 1482; Mul 1482 409 1587; Mul 1091 384 1625;
  Add 1143 1482 1091; Mul 1122 381 1176; Mul 1166 401 1209; Add 1398 1122 1166; Add 1143 1143 1398;
  Mul 1398 1414 1209; Add 1034 1034 1398; Mul 1034 378 1034; Add 1034 1277 1034; Mul 1329 366 1034;
  Mul 1618 592 1348; Add 1469 1329 1618; Mul 1319 601 1370; Mul 1541 213 1523; Mul 1581 393 1541;
  Add 1394 1319 1581; Sub 1469 1469 1394; Add 1143 1143 1469; Sub 1518 1518 1143; Mul 1143 598 1558;
  Add 1469 1427 1277; Mul 1394 363 1469; Sub 1143 1143 1394; Mul 1394 387 1285; Mul 1340 596 1478;
  Add 1394 1394 1340; Add 1143 1143 1394; Mul 1394 405 1223; Mul 1340 389 1523; Add 1394 1394 1340;
  Add 1143 1143 1394; Mul 1394 475 1209; Mul 1340 387 1350; Mul 1643 391 1478; Add 1340 1340 1643;
  Mul 1643 363 1209; Mul 1679 381 1558; Add 1643 1643 1679; Sub 1340 1340 1643; Sub 1340 1613 1340;
  Mul 1340 378 1340; Mul 1643 381 1340; Add 1394 1394 1643; Mul 1643 600 1587; Mul 1679 363 1587;
  Mul 1275 384 1558; Add 1679 1679 1275; Mul 1275 405 1350; Mul 1617 391 1523; Add 1275 1275 1617;
  Sub 1679 1679 1275; Sub 1679 1128 1679; Mul 1679 378 1679; Mul 1275 384 1679; Add 1643 1643 1275;
  Sub 1394 1394 1643; Add 1143 1143 1394; Mul 1143 213 1143; Sub 1518 1518 1143; Mul 1394 607 1440;
  Mul 1643 423 1635; Mul 1275 40 1631; Mul 1617 42 1051; Add 1275 1275 1617].
Definition casadi_f0_420 : list instruction := [
  Add 1643 1643 1275; Mul 1275 372 1643; Mul 1617 589 1635; Add 1275 1275 1617; Mul 1617 40 1635;
  Mul 1555 14 1631; Mul 1051 18 1051; Add 1555 1555 1051; Add 1617 1617 1555; Mul 1555 429 1617;
  Mul 1631 603 1631; Add 1555 1555 1631; Add 1275 1275 1555; Mul 1555 1428 1535; Mul 1631 1264 1574;
  Add 1051 1555 1631; Mul 1051 430 1051; Add 1051 1275 1051; Mul 1071 420 1051; Add 1351 1394 1071;
  Mul 1335 610 1318; Mul 1643 358 1643; Mul 1588 589 1443; Add 1643 1643 1588; Mul 1617 418 1617;
  Mul 1108 603 1108; Add 1617 1617 1108; Add 1643 1643 1617; Mul 1527 43 1527; Mul 1617 431 1456;
  Sub 1527 1527 1617; Add 1643 1643 1527; Mul 1433 434 1433; Mul 1527 446 1104; Add 1433 1433 1527;
  Sub 1433 1643 1433; Mul 1527 442 1433; Add 1617 1335 1527; Sub 1351 1351 1617; Mul 1617 463 1574;
  Mul 1108 438 1628; Add 1588 1617 1108; Mul 1127 434 1301; Mul 1238 455 1104; Add 1208 1127 1238;
  Add 1588 1588 1208; Mul 1208 1437 1104; Add 1555 1555 1208; Mul 1555 430 1555; Add 1555 1543 1555;
  Mul 1210 420 1555; Mul 1345 605 1440; Add 1296 1210 1345; Mul 1339 614 1179; Mul 1583 213 1507;
  Mul 1235 447 1583; Add 1495 1339 1235; Sub 1296 1296 1495; Add 1588 1588 1296; Sub 1351 1351 1588;
  Mul 1588 13 1694; Add 1296 1275 1543; Mul 1495 417 1296; Sub 1588 1588 1495; Mul 1495 441 1643;
  Mul 1450 609 1690; Add 1495 1495 1450; Add 1588 1588 1495; Mul 1495 459 1687; Mul 1450 443 1507;
  Add 1495 1495 1450; Add 1588 1588 1495; Mul 1495 477 1104; Mul 1450 441 1535; Mul 1415 445 1690;
  Add 1450 1450 1415; Mul 1415 417 1104; Mul 1283 434 1694; Add 1415 1415 1283; Sub 1450 1450 1415;
  Sub 1450 1167 1450; Mul 1450 430 1450; Mul 1415 434 1450; Add 1495 1495 1415; Mul 1415 611 1574;
  Mul 1283 417 1574; Mul 1228 438 1694; Add 1283 1283 1228; Mul 1228 459 1535; Mul 1675 445 1507;
  Add 1228 1228 1675; Sub 1283 1283 1228; Sub 1283 1259 1283; Mul 1283 430 1283; Mul 1228 438 1283;
  Add 1415 1415 1228; Sub 1495 1495 1415; Add 1588 1588 1495; Mul 1588 213 1588; Sub 1351 1351 1588;
  Add 1518 1518 1351; Add 1424 1424 1518; Add 1190 1190 1424; Add 1648 1648 1190; Mul 1648 216 1648;
  Mul 1495 554 1077; Sub 1648 1648 1495; Mul 1495 242 1116; Mul 1415 230 1499; Sub 1495 1495 1415;
  Mul 1415 560 1556; Mul 1228 248 1248; Add 1675 1415 1228; Mul 1692 244 1692; Mul 1584 551 1684;
  Add 1454 1692 1584; Sub 1675 1675 1454; Sub 1675 1495 1675; Mul 1454 556 1453; Mul 1141 249 1180;
  Add 1142 1454 1141; Mul 1308 558 1684; Sub 1465 1465 1211; Mul 1465 212 1465; Add 1465 1529 1465;
  Mul 1211 244 1465; Add 1444 1308 1211; Sub 1142 1142 1444; Add 1675 1675 1142; Mul 1142 219 1664;
  Mul 1444 555 1466; Add 1142 1142 1444; Mul 1444 227 1162; Mul 1515 550 1698; Add 1444 1444 1515;
  Add 1142 1142 1444; Mul 1444 525 1107; Mul 1515 246 1653; Add 1444 1444 1515; Add 1142 1142 1444;
  Mul 1444 231 1604; Mul 1515 340 1571; Sub 1444 1444 1515; Mul 1515 525 1506; Mul 1665 225 1653;
  Add 1515 1515 1665; Mul 1665 242 1698; Mul 1695 227 1499; Sub 1665 1665 1695].
Definition casadi_f0_421 : list instruction := [
  Sub 1515 1515 1665; Add 1515 1137 1515; Mul 1515 212 1515; Mul 1665 242 1515; Mul 1695 616 1499;
  Sub 1665 1665 1695; Sub 1444 1444 1665; Add 1142 1142 1444; Mul 1142 213 1142; Add 1675 1675 1142;
  Mul 1444 570 1218; Mul 1665 258 1480; Add 1695 1444 1665; Mul 1271 572 1021; Add 1389 1389 1464;
  Mul 1389 269 1389; Sub 1389 1389 1383; Mul 1464 279 1389; Add 1434 1271 1464; Sub 1695 1695 1434;
  Mul 1434 297 1201; Mul 1539 275 1134; Add 1576 1434 1539; Mul 1337 282 1500; Mul 1658 292 1595;
  Add 1042 1337 1658; Add 1576 1576 1042; Mul 1042 574 1213; Mul 1343 276 1520; Add 1700 1042 1343;
  Mul 1110 279 1110; Mul 1532 565 1021; Add 1496 1110 1532; Sub 1700 1700 1496; Add 1576 1576 1700;
  Sub 1695 1695 1576; Mul 1576 255 1133; Mul 1700 569 1603; Add 1576 1576 1700; Mul 1700 278 1109;
  Mul 1496 564 1270; Add 1700 1700 1496; Add 1576 1576 1700; Mul 1700 296 1417; Mul 1496 266 1547;
  Add 1700 1700 1496; Add 1576 1576 1700; Mul 1700 617 1201; Mul 1496 296 1501; Mul 1254 271 1547;
  Add 1496 1496 1254; Mul 1254 278 1201; Mul 1105 275 1270; Add 1254 1254 1105; Sub 1496 1496 1254;
  Sub 1496 1349 1496; Mul 1496 269 1496; Mul 1254 275 1496; Add 1700 1700 1254; Mul 1254 471 1595;
  Mul 1105 282 1344; Add 1254 1254 1105; Sub 1700 1700 1254; Add 1576 1576 1700; Mul 1576 213 1576;
  Add 1695 1695 1576; Mul 1700 584 1321; Mul 1254 312 1597; Add 1105 1700 1254; Mul 1548 586 1378;
  Add 1297 1297 1487; Mul 1297 323 1297; Sub 1297 1297 1564; Mul 1487 333 1297; Add 1017 1548 1487;
  Sub 1105 1105 1017; Mul 1017 351 1093; Mul 1436 329 1118; Add 1659 1017 1436; Mul 1463 336 1457;
  Mul 1125 346 1568; Add 1016 1463 1125; Add 1659 1659 1016; Mul 1016 588 1084; Mul 1229 330 1431;
  Add 1181 1016 1229; Mul 1305 333 1305; Mul 1360 579 1378; Add 1215 1305 1360; Sub 1181 1181 1215;
  Add 1659 1659 1181; Sub 1105 1105 1659; Mul 1659 309 1696; Mul 1181 583 1689; Add 1659 1659 1181;
  Mul 1181 332 1154; Mul 1215 578 1200; Add 1181 1181 1215; Add 1659 1659 1181; Mul 1181 349 1221;
  Mul 1215 320 1152; Add 1181 1181 1215; Add 1659 1659 1181; Mul 1181 619 1093; Mul 1215 349 1557;
  Mul 1565 325 1152; Add 1215 1215 1565; Mul 1565 332 1093; Mul 1102 329 1200; Add 1565 1565 1102;
  Sub 1215 1215 1565; Sub 1215 1315 1215; Mul 1215 323 1215; Mul 1565 329 1215; Add 1181 1181 1565;
  Mul 1565 473 1568; Mul 1102 336 1652; Add 1565 1565 1102; Sub 1181 1181 1565; Add 1659 1659 1181;
  Mul 1659 213 1659; Add 1105 1105 1659; Mul 1181 597 1348; Mul 1565 366 1365; Add 1102 1181 1565;
  Mul 1144 599 1151; Add 1398 1398 1131; Mul 1398 378 1398; Sub 1398 1398 1469; Mul 1131 388 1398;
  Add 1280 1144 1131; Sub 1102 1102 1280; Mul 1280 406 1587; Mul 1599 384 1662; Add 1471 1280 1599;
  Mul 1416 391 1176; Mul 1347 401 1350; Add 1272 1416 1347; Add 1471 1471 1272; Mul 1272 601 1551;
  Mul 1295 385 1541; Add 1401 1272 1295; Mul 1034 388 1034; Mul 1412 592 1151; Add 1112 1034 1412;
  Sub 1401 1401 1112; Add 1471 1471 1401; Sub 1102 1102 1471; Mul 1471 363 1285].
Definition casadi_f0_422 : list instruction := [
  Mul 1401 596 1558; Add 1471 1471 1401; Mul 1401 387 1427; Mul 1112 591 1478; Add 1401 1401 1112;
  Add 1471 1471 1401; Mul 1401 405 1086; Mul 1112 374 1523; Add 1401 1401 1112; Add 1471 1471 1401;
  Mul 1401 621 1587; Mul 1112 405 1209; Mul 1333 381 1523; Add 1112 1112 1333; Mul 1333 387 1587;
  Mul 1147 384 1478; Add 1333 1333 1147; Sub 1112 1112 1333; Sub 1112 1608 1112; Mul 1112 378 1112;
  Mul 1333 384 1112; Add 1401 1401 1333; Mul 1333 475 1350; Mul 1147 391 1340; Add 1333 1333 1147;
  Sub 1401 1401 1333; Add 1471 1471 1401; Mul 1471 213 1471; Add 1102 1102 1471; Mul 1401 610 1440;
  Mul 1333 420 1433; Add 1147 1401 1333; Mul 1590 612 1318; Add 1208 1208 1631; Mul 1208 430 1208;
  Sub 1208 1208 1296; Mul 1631 442 1208; Add 1526 1590 1631; Sub 1147 1147 1526; Mul 1526 460 1574;
  Mul 1489 438 1467; Add 1672 1526 1489; Mul 1542 445 1301; Mul 1554 455 1535; Add 1374 1542 1554;
  Add 1672 1672 1374; Mul 1374 614 1403; Mul 1411 439 1583; Add 1479 1374 1411; Mul 1555 442 1555;
  Mul 1036 605 1318; Add 1222 1555 1036; Sub 1479 1479 1222; Add 1672 1672 1479; Sub 1147 1147 1672;
  Mul 1672 417 1643; Mul 1479 609 1694; Add 1672 1672 1479; Mul 1479 441 1275; Mul 1222 604 1690;
  Add 1479 1479 1222; Add 1672 1672 1479; Mul 1479 459 1354; Mul 1222 426 1507; Add 1479 1479 1222;
  Add 1672 1672 1479; Mul 1479 623 1574; Mul 1222 459 1104; Mul 1622 434 1507; Add 1222 1222 1622;
  Mul 1622 441 1574; Mul 1402 438 1690; Add 1622 1622 1402; Sub 1222 1222 1622; Sub 1222 1324 1222;
  Mul 1222 430 1222; Mul 1622 438 1222; Add 1479 1479 1622; Mul 1622 477 1535; Mul 1402 445 1450;
  Add 1622 1622 1402; Sub 1479 1479 1622; Add 1672 1672 1479; Mul 1672 213 1672; Add 1147 1147 1672;
  Add 1102 1102 1147; Add 1105 1105 1102; Add 1695 1695 1105; Add 1675 1675 1695; Mul 1675 215 1675;
  Mul 1479 613 1420; Add 1675 1675 1479; Sub 1648 1648 1675; Mul 1675 212 1453; Mul 1479 242 1675;
  Mul 1622 624 1499; Sub 1479 1479 1622; Mul 1622 212 1248; Mul 1402 231 1622; Mul 1419 626 1571;
  Sub 1402 1402 1419; Add 1402 1633 1402; Sub 1479 1479 1402; Mul 1402 213 1204; Add 1419 1479 1402;
  Mul 1256 269 1218; Mul 1185 275 1256; Mul 1540 629 1201; Add 1483 1185 1540; Mul 1627 631 1595;
  Mul 1549 269 1520; Mul 1161 282 1549; Add 1537 1627 1161; Add 1537 1621 1537; Sub 1483 1483 1537;
  Mul 1537 213 1409; Add 1382 1483 1537; Mul 1139 323 1321; Mul 1509 329 1139; Mul 1468 634 1093;
  Add 1173 1509 1468; Mul 1111 636 1568; Mul 1192 323 1431; Mul 1559 336 1192; Add 1451 1111 1559;
  Add 1451 1441 1451; Sub 1173 1173 1451; Mul 1451 213 1423; Add 1517 1173 1451; Mul 1455 378 1348;
  Mul 1311 384 1455; Mul 1593 639 1587; Add 1445 1311 1593; Mul 1087 641 1350; Mul 1171 378 1541;
  Mul 1188 391 1171; Add 1288 1087 1188; Add 1288 1625 1288; Sub 1445 1445 1288; Mul 1288 213 1679;
  Add 1438 1445 1288; Mul 1533 430 1440; Mul 1671 438 1533; Mul 1062 644 1574; Add 1488 1671 1062;
  Mul 1649 646 1535; Mul 1413 430 1583; Mul 1668 445 1413; Add 1701 1649 1668].
Definition casadi_f0_423 : list instruction := [
  Add 1701 1628 1701; Sub 1488 1488 1701; Mul 1701 213 1283; Add 1666 1488 1701; Add 1438 1438 1666;
  Add 1517 1517 1438; Add 1382 1382 1517; Add 1419 1419 1382; Mul 1419 540 1419; Mul 1634 628 1115;
  Sub 1419 1419 1634; Mul 1634 212 1684; Mul 1239 242 1634; Mul 1422 650 1499; Sub 1239 1239 1422;
  Mul 1422 626 1506; Mul 1585 225 1622; Add 1422 1422 1585; Add 1422 1116 1422; Sub 1239 1239 1422;
  Mul 1422 213 1515; Add 1585 1239 1422; Mul 1699 631 1501; Mul 1364 271 1549; Add 1263 1699 1364;
  Sub 1263 1134 1263; Mul 1486 269 1021; Mul 1356 275 1486; Mul 1282 655 1201; Add 1522 1356 1282;
  Add 1263 1263 1522; Mul 1522 213 1496; Sub 1353 1263 1522; Mul 1589 636 1557; Mul 1393 325 1192;
  Add 1183 1589 1393; Sub 1183 1118 1183; Mul 1647 323 1378; Mul 1075 329 1647; Mul 1646 659 1093;
  Add 1624 1075 1646; Add 1183 1183 1624; Mul 1624 213 1215; Sub 1199 1183 1624; Mul 1577 641 1209;
  Mul 1674 381 1171; Add 1047 1577 1674; Sub 1047 1662 1047; Mul 1639 378 1151; Mul 1552 384 1639;
  Mul 1094 663 1587; Add 1519 1552 1094; Add 1047 1047 1519; Mul 1519 213 1112; Sub 1025 1047 1519;
  Mul 1503 646 1104; Mul 1513 434 1413; Add 1022 1503 1513; Sub 1022 1467 1022; Mul 1545 430 1318;
  Mul 1473 438 1545; Mul 1609 667 1574; Add 1172 1473 1609; Add 1022 1022 1172; Mul 1172 213 1222;
  Sub 1169 1022 1172; Add 1025 1025 1169; Add 1199 1199 1025; Add 1353 1353 1199; Add 1585 1585 1353;
  Mul 1585 544 1585; Mul 1266 653 1232; Add 1585 1585 1266; Add 1419 1419 1585; Sub 1648 1648 1419;
  Add 1261 1261 1648; Mul 1261 1 1261; Mul 1648 509 1135; Add 1261 1261 1648; Add 1298 1298 1261;
  Mul 1261 602 1106; Mul 1648 216 1547; Mul 1419 296 1077; Sub 1648 1648 1419; Mul 1419 517 1648;
  Add 1261 1261 1419; Mul 1419 670 1346; Mul 1585 215 1547; Mul 1266 296 1420; Add 1585 1585 1266;
  Mul 1266 532 1585; Add 1419 1419 1266; Add 1261 1261 1419; Mul 1611 671 1611; Mul 1419 216 1603;
  Mul 1266 255 1077; Sub 1419 1419 1266; Mul 1266 215 1270; Mul 1189 278 1420; Add 1266 1266 1189;
  Add 1419 1419 1266; Mul 1266 492 1419; Add 1611 1611 1266; Sub 1261 1261 1611; Mul 1611 675 1493;
  Mul 1266 215 1019; Mul 1189 290 1420; Add 1266 1266 1189; Mul 1189 674 1547; Mul 1252 216 1196;
  Mul 1391 274 1077; Add 1252 1252 1391; Mul 1391 296 1252; Sub 1189 1189 1391; Mul 1391 676 1603;
  Mul 1242 215 1242; Mul 1341 270 1420; Add 1242 1242 1341; Mul 1572 216 1572; Mul 1341 281 1077;
  Add 1572 1572 1341; Sub 1242 1242 1572; Mul 1572 255 1242; Add 1391 1391 1572; Add 1189 1189 1391;
  Add 1266 1266 1189; Mul 1189 602 1146; Mul 1391 523 1648; Add 1189 1189 1391; Mul 1391 671 1493;
  Mul 1572 502 1419; Add 1391 1391 1572; Add 1189 1189 1391; Sub 1189 1266 1189; Mul 1189 672 1189;
  Mul 1391 502 1189; Add 1611 1611 1391; Mul 1391 679 1082; Mul 1019 216 1019; Mul 1572 290 1077;
  Sub 1019 1019 1572; Mul 1572 676 1270; Mul 1341 278 1242; Add 1572 1572 1341; Mul 1341 680 1547;
  Mul 1546 274 1420; Mul 1196 215 1196; Sub 1546 1546 1196; Mul 1196 296 1546].
Definition casadi_f0_424 : list instruction := [
  Add 1341 1341 1196; Add 1572 1572 1341; Sub 1019 1019 1572; Mul 1572 671 1082; Mul 1341 505 1419;
  Add 1572 1572 1341; Mul 1341 670 1146; Mul 1196 523 1585; Add 1341 1341 1196; Add 1572 1572 1341;
  Add 1572 1019 1572; Mul 1572 672 1572; Mul 1341 505 1572; Add 1391 1391 1341; Sub 1611 1611 1391;
  Add 1261 1261 1611; Mul 1382 674 1382; Mul 1611 633 1252; Sub 1382 1382 1611; Mul 1353 680 1353;
  Mul 1611 657 1546; Add 1353 1353 1611; Mul 1549 275 1549; Mul 1201 631 1201; Add 1611 1549 1201;
  Mul 1391 629 1595; Mul 1341 282 1256; Add 1196 1391 1341; Mul 1132 655 1501; Mul 1598 271 1486;
  Add 1219 1132 1598; Add 1201 1201 1549; Add 1549 1219 1201; Add 1196 1196 1549; Sub 1459 1611 1196;
  Add 1341 1341 1391; Add 1598 1598 1132; Add 1611 1598 1611; Add 1341 1341 1611; Sub 1201 1201 1341;
  Sub 1459 1459 1201; Mul 1192 329 1192; Mul 1093 636 1093; Add 1201 1192 1093; Mul 1132 634 1568;
  Mul 1391 336 1139; Add 1330 1132 1391; Mul 1123 659 1557; Mul 1491 325 1647; Add 1255 1123 1491;
  Add 1093 1093 1192; Add 1192 1255 1093; Add 1330 1330 1192; Sub 1681 1201 1330; Add 1391 1391 1132;
  Add 1491 1491 1123; Add 1201 1491 1201; Add 1391 1391 1201; Sub 1093 1093 1391; Sub 1681 1681 1093;
  Mul 1171 384 1171; Mul 1587 641 1587; Add 1093 1171 1587; Mul 1123 639 1350; Mul 1132 391 1455;
  Add 1287 1123 1132; Mul 1230 663 1209; Mul 1018 381 1639; Add 1359 1230 1018; Add 1587 1587 1171;
  Add 1171 1359 1587; Add 1287 1287 1171; Sub 1435 1093 1287; Add 1132 1132 1123; Add 1018 1018 1230;
  Add 1093 1018 1093; Add 1132 1132 1093; Sub 1587 1587 1132; Sub 1435 1435 1587; Mul 1413 438 1413;
  Mul 1587 646 1574; Add 1230 1413 1587; Mul 1123 644 1535; Mul 1175 445 1533; Add 1536 1123 1175;
  Mul 1236 667 1104; Mul 1375 434 1545; Add 1320 1236 1375; Add 1587 1587 1413; Add 1413 1320 1587;
  Add 1536 1536 1413; Sub 1460 1230 1536; Add 1175 1175 1123; Add 1375 1375 1236; Add 1230 1375 1230;
  Add 1175 1175 1230; Sub 1587 1587 1175; Sub 1460 1460 1587; Add 1435 1435 1460; Add 1681 1681 1435;
  Add 1459 1459 1681; Mul 1459 676 1459; Mul 1587 687 1242; Add 1236 1459 1587; Sub 1353 1353 1236;
  Add 1382 1382 1353; Mul 1695 215 1695; Mul 1353 552 1420; Add 1695 1695 1353; Mul 1190 216 1190;
  Mul 1353 568 1077; Sub 1190 1190 1353; Sub 1695 1695 1190; Add 1382 1382 1695; Add 1261 1261 1382;
  Mul 1261 2 1261; Mul 1382 649 1140; Add 1261 1261 1382; Add 1298 1298 1261; Mul 1227 677 1227;
  Mul 1261 216 1689; Mul 1382 309 1077; Sub 1261 1261 1382; Mul 1382 215 1200; Mul 1695 332 1420;
  Add 1382 1382 1695; Add 1261 1261 1382; Mul 1382 484 1261; Add 1227 1227 1382; Mul 1382 706 1395;
  Mul 1695 216 1152; Mul 1190 349 1077; Sub 1695 1695 1190; Mul 1190 513 1695; Add 1382 1382 1190;
  Mul 1190 712 1089; Mul 1353 215 1152; Mul 1236 349 1420; Add 1353 1353 1236; Mul 1236 530 1353;
  Add 1190 1190 1236; Add 1382 1382 1190; Sub 1227 1227 1382; Mul 1382 711 1055; Mul 1190 706 1458;
  Mul 1236 519 1695; Add 1190 1190 1236; Mul 1236 677 1055; Mul 1123 494 1261].
Definition casadi_f0_425 : list instruction := [
  Add 1236 1236 1123; Add 1190 1190 1236; Mul 1236 215 1439; Mul 1123 344 1420; Add 1236 1236 1123;
  Mul 1123 714 1152; Mul 1400 216 1528; Mul 1247 328 1077; Sub 1400 1400 1247; Mul 1247 349 1400;
  Add 1123 1123 1247; Mul 1247 716 1689; Mul 1425 216 1425; Mul 1484 335 1077; Sub 1425 1425 1484;
  Mul 1601 215 1601; Mul 1484 324 1420; Add 1601 1601 1484; Add 1425 1425 1601; Mul 1601 309 1425;
  Add 1247 1247 1601; Add 1123 1123 1247; Add 1236 1236 1123; Sub 1190 1190 1236; Mul 1190 156 1190;
  Mul 1123 494 1190; Add 1382 1382 1123; Mul 1123 719 1449; Mul 1247 716 1200; Mul 1601 332 1425;
  Add 1247 1247 1601; Mul 1601 718 1152; Mul 1528 215 1528; Mul 1484 328 1420; Add 1528 1528 1484;
  Mul 1484 349 1528; Add 1601 1601 1484; Add 1247 1247 1601; Mul 1439 216 1439; Mul 1601 344 1077;
  Sub 1439 1439 1601; Sub 1247 1247 1439; Mul 1439 677 1449; Mul 1601 497 1261; Add 1439 1439 1601;
  Mul 1601 712 1458; Mul 1484 519 1353; Add 1601 1601 1484; Add 1439 1439 1601; Sub 1439 1247 1439;
  Mul 1439 156 1439; Mul 1601 497 1439; Add 1123 1123 1601; Sub 1382 1382 1123; Add 1227 1227 1382;
  Mul 1681 716 1681; Mul 1382 694 1425; Add 1123 1681 1382; Mul 1199 718 1199; Mul 1601 661 1528;
  Add 1199 1199 1601; Sub 1123 1123 1199; Mul 1517 714 1517; Mul 1199 638 1400; Add 1517 1517 1199;
  Sub 1123 1123 1517; Mul 1424 216 1424; Mul 1517 582 1077; Sub 1424 1424 1517; Mul 1105 215 1105;
  Mul 1517 618 1420; Add 1105 1105 1517; Sub 1424 1424 1105; Add 1123 1123 1424; Add 1227 1227 1123;
  Mul 1227 3 1227; Mul 1123 681 1562; Add 1227 1227 1123; Add 1298 1298 1227; Mul 1227 715 1193;
  Mul 1123 327 1523; Mul 1424 405 1602; Add 1123 1123 1424; Mul 1424 318 1478; Mul 1105 387 1195;
  Add 1424 1424 1105; Sub 1123 1123 1424; Mul 1424 510 1123; Add 1227 1227 1424; Mul 1424 721 1396;
  Mul 1105 318 1558; Mul 1517 363 1195; Add 1105 1105 1517; Mul 1517 310 1523; Mul 1199 405 1461;
  Add 1517 1517 1199; Sub 1105 1105 1517; Mul 1517 528 1105; Add 1424 1424 1517; Add 1227 1227 1424;
  Mul 1424 722 1302; Mul 1517 310 1478; Mul 1199 387 1461; Add 1517 1517 1199; Mul 1199 327 1558;
  Mul 1601 363 1602; Add 1199 1199 1601; Sub 1517 1517 1199; Mul 1199 479 1517; Add 1424 1424 1199;
  Add 1227 1227 1424; Mul 1424 726 1325; Mul 1199 318 1608; Mul 1601 404 1195; Add 1199 1199 1601;
  Mul 1601 310 1613; Mul 1484 399 1461; Add 1601 1601 1484; Sub 1199 1199 1601; Mul 1601 725 1523;
  Mul 1484 327 1225; Mul 1224 383 1602; Add 1484 1484 1224; Mul 1224 318 1326; Mul 1206 379 1195;
  Add 1224 1224 1206; Sub 1484 1484 1224; Mul 1224 405 1484; Add 1601 1601 1224; Mul 1224 727 1558;
  Mul 1326 310 1326; Mul 1206 379 1461; Add 1326 1326 1206; Mul 1206 327 1150; Mul 1332 390 1602;
  Add 1206 1206 1332; Sub 1326 1326 1206; Mul 1206 363 1326; Add 1224 1224 1206; Sub 1601 1601 1224;
  Add 1199 1199 1601; Mul 1601 715 1362; Mul 1224 515 1123; Add 1601 1601 1224; Mul 1224 722 1325;
  Mul 1206 486 1517; Add 1224 1224 1206; Sub 1601 1601 1224; Sub 1601 1199 1601].
Definition casadi_f0_426 : list instruction := [
  Mul 1601 723 1601; Mul 1224 486 1601; Add 1424 1424 1224; Mul 1224 730 1481; Mul 1613 327 1613;
  Mul 1206 399 1602; Add 1613 1613 1206; Mul 1206 318 1128; Mul 1332 408 1195; Add 1206 1206 1332;
  Sub 1613 1613 1206; Mul 1206 727 1478; Mul 1332 387 1326; Add 1206 1206 1332; Mul 1332 731 1523;
  Mul 1150 318 1150; Mul 1276 390 1195; Add 1150 1150 1276; Mul 1225 310 1225; Mul 1276 383 1461;
  Add 1225 1225 1276; Sub 1150 1150 1225; Mul 1225 405 1150; Add 1332 1332 1225; Sub 1206 1206 1332;
  Add 1613 1613 1206; Mul 1206 722 1481; Mul 1332 489 1517; Add 1206 1206 1332; Mul 1332 721 1362;
  Mul 1225 515 1105; Add 1332 1332 1225; Sub 1206 1206 1332; Sub 1206 1613 1206; Mul 1206 723 1206;
  Mul 1332 489 1206; Add 1224 1224 1332; Sub 1424 1424 1224; Add 1227 1227 1424; Mul 1424 725 1438;
  Mul 1224 643 1484; Add 1424 1424 1224; Mul 1224 731 1025; Mul 1332 665 1150; Add 1224 1224 1332;
  Mul 1332 727 1435; Mul 1225 701 1326; Add 1276 1332 1225; Add 1224 1224 1276; Add 1424 1424 1224;
  Mul 1224 310 1102; Mul 1276 620 1461; Add 1224 1224 1276; Mul 1276 327 1518; Mul 1688 595 1602;
  Add 1276 1276 1688; Mul 1243 318 1243; Mul 1688 395 1195; Add 1278 1243 1688; Add 1276 1276 1278;
  Add 1224 1224 1276; Sub 1424 1424 1224; Add 1227 1227 1424; Mul 1424 4 1227; Mul 1224 720 1117;
  Add 1424 1424 1224; Add 1298 1298 1424; Mul 1424 728 1687; Mul 1224 372 1507; Mul 1276 459 1635;
  Add 1224 1224 1276; Mul 1276 369 1690; Mul 1278 441 1456; Add 1276 1276 1278; Sub 1224 1224 1276;
  Mul 1276 443 1224; Add 1424 1424 1276; Mul 1276 733 1354; Mul 1278 369 1694; Mul 1650 417 1456;
  Add 1278 1278 1650; Mul 1650 358 1507; Mul 1194 459 1443; Add 1650 1650 1194; Sub 1278 1278 1650;
  Mul 1650 426 1278; Add 1276 1276 1650; Add 1424 1424 1276; Mul 1276 734 1543; Mul 1650 358 1690;
  Mul 1194 441 1443; Add 1650 1650 1194; Mul 1194 372 1694; Mul 1580 417 1635; Add 1194 1194 1580;
  Sub 1650 1650 1194; Mul 1194 478 1650; Add 1276 1276 1194; Add 1424 1424 1276; Mul 1276 735 1535;
  Mul 1194 369 1324; Mul 1580 458 1456; Add 1194 1194 1580; Mul 1580 358 1167; Mul 1600 451 1443;
  Add 1580 1580 1600; Sub 1194 1194 1580; Mul 1580 736 1507; Mul 1600 372 1253; Mul 1670 437 1635;
  Add 1600 1600 1670; Mul 1670 369 1317; Mul 1250 432 1456; Add 1670 1670 1250; Sub 1600 1600 1670;
  Mul 1670 459 1600; Add 1580 1580 1670; Mul 1670 738 1694; Mul 1317 358 1317; Mul 1250 432 1443;
  Add 1317 1317 1250; Mul 1250 372 1205; Mul 1099 444 1635; Add 1250 1250 1099; Sub 1317 1317 1250;
  Mul 1250 417 1317; Add 1670 1670 1250; Sub 1580 1580 1670; Add 1194 1194 1580; Mul 1580 728 1574;
  Mul 1670 438 1224; Add 1580 1580 1670; Mul 1670 734 1535; Mul 1250 445 1650; Add 1670 1670 1250;
  Sub 1580 1580 1670; Sub 1194 1194 1580; Mul 1194 430 1194; Mul 1580 445 1194; Add 1276 1276 1580;
  Mul 1580 739 1104; Mul 1167 372 1167; Mul 1670 451 1635; Add 1167 1167 1670; Mul 1670 369 1259;
  Mul 1250 462 1456; Add 1670 1670 1250; Sub 1167 1167 1670; Mul 1670 738 1690].
Definition casadi_f0_427 : list instruction := [
  Mul 1250 441 1317; Add 1670 1670 1250; Mul 1250 741 1507; Mul 1205 369 1205; Mul 1099 444 1456;
  Add 1205 1205 1099; Mul 1253 358 1253; Mul 1099 437 1443; Add 1253 1253 1099; Sub 1205 1205 1253;
  Mul 1253 459 1205; Add 1250 1250 1253; Sub 1670 1670 1250; Add 1167 1167 1670; Mul 1670 734 1104;
  Mul 1250 434 1650; Add 1670 1670 1250; Mul 1250 733 1574; Mul 1253 438 1278; Add 1250 1250 1253;
  Sub 1670 1670 1250; Sub 1167 1167 1670; Mul 1167 430 1167; Mul 1670 434 1167; Add 1580 1580 1670;
  Sub 1276 1276 1580; Add 1424 1424 1276; Mul 1276 736 1666; Mul 1580 648 1600; Add 1276 1276 1580;
  Mul 1580 741 1169; Mul 1670 669 1205; Add 1580 1580 1670; Mul 1670 738 1460; Mul 1250 708 1317;
  Add 1253 1670 1250; Add 1580 1580 1253; Add 1276 1276 1580; Mul 1580 358 1147; Mul 1253 622 1443;
  Add 1580 1580 1253; Mul 1253 372 1351; Mul 1099 608 1635; Add 1253 1253 1099; Mul 1163 369 1163;
  Mul 1099 449 1456; Add 1100 1163 1099; Add 1253 1253 1100; Add 1580 1580 1253; Sub 1276 1276 1580;
  Add 1424 1424 1276; Mul 1276 5 1424; Mul 1580 732 1217; Add 1276 1276 1580; Add 1298 1298 1276;
  Mul 1276 286 1292; Mul 1580 212 1276; Mul 1580 107 1580; Mul 1253 745 1524; Mul 1100 737 1524;
  Mul 1579 9 1276; Add 1100 1100 1579; Mul 1579 743 1024; Mul 1566 286 1159; Mul 1430 8 1566;
  Add 1579 1579 1430; Sub 1100 1100 1579; Mul 1579 269 1100; Mul 1430 81 1579; Mul 1101 746 1392;
  Mul 1669 743 1524; Mul 1426 9 1566; Sub 1669 1669 1426; Mul 1276 8 1276; Mul 1426 737 1024;
  Sub 1276 1276 1426; Sub 1669 1669 1276; Mul 1276 53 1669; Add 1101 1101 1276; Mul 1276 66 1100;
  Mul 1426 742 1683; Sub 1276 1276 1426; Add 1101 1101 1276; Mul 1276 323 1101; Mul 1426 47 1276;
  Mul 1037 378 1101; Mul 1610 24 1037; Mul 1198 752 1410; Mul 1560 66 1669; Mul 1170 746 1683;
  Sub 1560 1560 1170; Mul 1170 742 1392; Mul 1100 53 1100; Add 1170 1170 1100; Sub 1560 1560 1170;
  Mul 1170 35 1560; Add 1198 1198 1170; Mul 1170 378 1198; Mul 1100 31 1170; Sub 1610 1610 1100;
  Mul 1100 753 1234; Mul 1371 15 1198; Add 1100 1100 1371; Mul 1371 16 1101; Mul 1030 747 1053;
  Sub 1371 1371 1030; Add 1100 1100 1371; Mul 1100 430 1100; Mul 1371 26 1100; Mul 1198 16 1198;
  Mul 1030 753 1053; Sub 1198 1198 1030; Mul 1030 747 1234; Mul 1101 15 1101; Add 1030 1030 1101;
  Sub 1198 1198 1030; Mul 1198 430 1198; Mul 1030 28 1198; Sub 1371 1371 1030; Mul 1030 16 1100;
  Mul 1101 755 1053; Sub 1030 1030 1101; Mul 1101 757 1234; Mul 1049 15 1198; Add 1101 1101 1049;
  Sub 1030 1030 1101; Mul 1101 25 1030; Mul 1049 16 1198; Mul 1098 757 1053; Sub 1049 1049 1098;
  Mul 1098 755 1234; Mul 1685 15 1100; Add 1098 1098 1685; Add 1049 1049 1098; Mul 1098 32 1049;
  Sub 1101 1101 1098; Add 1101 1371 1101; Add 1610 1610 1101; Mul 1101 19 1610; Mul 1098 751 1136;
  Sub 1101 1101 1098; Mul 1098 763 1410; Mul 1685 19 1560; Mul 1429 752 1136; Sub 1685 1685 1429;
  Mul 1429 378 1685; Mul 1638 31 1429; Mul 1632 380 1037; Sub 1638 1638 1632].
Definition casadi_f0_428 : list instruction := [
  Mul 1685 430 1685; Mul 1632 28 1685; Mul 1100 433 1100; Sub 1632 1632 1100; Mul 1100 16 1632;
  Mul 1226 764 1053; Sub 1100 1100 1226; Mul 1226 766 1234; Mul 1198 433 1198; Mul 1680 26 1685;
  Sub 1198 1198 1680; Mul 1680 15 1198; Add 1226 1226 1680; Add 1100 1100 1226; Mul 1226 32 1685;
  Mul 1680 198 1030; Sub 1226 1226 1680; Add 1100 1100 1226; Add 1638 1638 1100; Mul 1100 35 1638;
  Add 1098 1098 1100; Add 1101 1101 1098; Add 1037 1037 1030; Mul 1030 48 1037; Add 1098 1170 1049;
  Mul 1100 19 1098; Mul 1226 765 1136; Sub 1100 1100 1226; Mul 1226 768 1410; Add 1680 1429 1685;
  Mul 1702 35 1680; Add 1226 1226 1702; Sub 1100 1100 1226; Mul 1226 55 1100; Sub 1030 1030 1226;
  Add 1101 1101 1030; Add 1426 1426 1101; Mul 1101 66 1426; Mul 1030 749 1683; Sub 1101 1101 1030;
  Mul 1030 762 1392; Mul 1170 380 1170; Mul 1429 24 1429; Sub 1170 1170 1429; Mul 1198 16 1198;
  Mul 1053 766 1053; Sub 1198 1198 1053; Mul 1234 764 1234; Mul 1632 15 1632; Add 1234 1234 1632;
  Sub 1198 1198 1234; Mul 1049 198 1049; Mul 1685 25 1685; Sub 1049 1049 1685; Add 1198 1198 1049;
  Add 1170 1170 1198; Mul 1198 62 1100; Mul 1680 19 1680; Mul 1049 768 1136; Sub 1680 1680 1049;
  Mul 1049 765 1410; Mul 1098 35 1098; Add 1049 1049 1098; Add 1680 1680 1049; Mul 1049 48 1680;
  Sub 1198 1198 1049; Add 1198 1170 1198; Mul 1560 323 1560; Mul 1049 47 1560; Sub 1198 1198 1049;
  Mul 1049 53 1198; Add 1030 1030 1049; Add 1101 1101 1030; Mul 1030 86 1100; Sub 1101 1101 1030;
  Add 1430 1430 1101; Mul 1101 9 1430; Add 1253 1253 1101; Mul 1198 66 1198; Mul 1101 762 1683;
  Sub 1198 1198 1101; Mul 1101 749 1392; Mul 1426 53 1426; Add 1101 1101 1426; Sub 1198 1198 1101;
  Mul 1101 91 1100; Add 1198 1198 1101; Mul 1669 269 1669; Mul 1101 81 1669; Sub 1198 1198 1101;
  Mul 1101 8 1198; Mul 1426 758 1024; Sub 1101 1101 1426; Add 1253 1253 1101; Mul 1100 102 1100;
  Add 1101 1560 1680; Mul 1426 66 1101; Mul 1030 770 1683; Sub 1426 1426 1030; Mul 1030 772 1392;
  Add 1049 1276 1037; Mul 1098 53 1049; Add 1030 1030 1098; Add 1426 1426 1030; Add 1030 1669 1426;
  Mul 1098 8 1030; Mul 1685 773 1024; Sub 1098 1098 1685; Mul 1685 776 1524; Mul 1049 66 1049;
  Mul 1683 772 1683; Sub 1049 1049 1683; Mul 1392 770 1392; Mul 1101 53 1101; Add 1392 1392 1101;
  Sub 1049 1049 1392; Add 1392 1579 1049; Mul 1101 9 1392; Add 1685 1685 1101; Sub 1098 1098 1685;
  Mul 1098 108 1098; Sub 1100 1100 1098; Add 1253 1253 1100; Add 1580 1580 1253; Mul 1580 114 1580;
  Mul 1159 740 1159; Sub 1580 1580 1159; Mul 1292 774 1292; Mul 1430 8 1430; Mul 1159 745 1024;
  Sub 1430 1430 1159; Mul 1159 758 1524; Mul 1198 9 1198; Add 1159 1159 1198; Sub 1430 1430 1159;
  Mul 1524 773 1524; Mul 1030 9 1030; Add 1524 1524 1030; Mul 1392 8 1392; Mul 1024 776 1024;
  Sub 1392 1392 1024; Add 1524 1524 1392; Mul 1392 108 1524; Add 1430 1430 1392; Mul 1566 212 1566;
  Mul 1392 107 1566; Sub 1430 1430 1392; Mul 1430 113 1430; Add 1292 1292 1430].
Definition casadi_f0_429 : list instruction := [
  Sub 1580 1580 1292; Add 1298 1298 1580; Mul 1580 210 1298; Sub 1578 1578 1580; Div 1580 1678 92;
  Mul 1292 1069 1126; Sub 1580 1580 1292; Mul 1292 779 1580; Add 1284 1284 1157; Add 1103 1103 1269;
  Sub 1284 1284 1103; Add 1303 1303 1663; Add 1407 1407 1202; Sub 1303 1303 1407; Add 1241 1241 1303;
  Sub 1284 1284 1241; Add 1284 1284 1561; Add 1313 1313 1448; Add 1097 1097 1373; Sub 1313 1313 1097;
  Add 1074 1074 1644; Add 1512 1512 1693; Add 1074 1074 1512; Add 1251 1251 1586; Add 1237 1237 1113;
  Sub 1251 1251 1237; Add 1074 1074 1251; Sub 1313 1313 1074; Add 1313 1313 1677; Add 1092 1092 1352;
  Add 1640 1640 1130; Sub 1092 1092 1640; Add 1474 1474 1388; Add 1686 1686 1363; Add 1474 1474 1686;
  Add 1358 1358 1492; Add 1368 1368 1268; Sub 1358 1358 1368; Add 1474 1474 1358; Sub 1092 1092 1474;
  Add 1092 1092 1149; Add 1581 1581 1319; Add 1618 1618 1329; Sub 1581 1581 1618; Add 1166 1166 1122;
  Add 1091 1091 1482; Add 1166 1166 1091; Add 1606 1606 1497; Add 1667 1667 1641; Sub 1606 1606 1667;
  Add 1166 1166 1606; Sub 1581 1581 1166; Add 1581 1581 1143; Add 1235 1235 1339; Add 1345 1345 1210;
  Sub 1235 1235 1345; Add 1238 1238 1127; Add 1108 1108 1617; Add 1238 1238 1108; Add 1527 1527 1335;
  Add 1071 1071 1394; Sub 1527 1527 1071; Add 1238 1238 1527; Sub 1235 1235 1238; Add 1235 1235 1588;
  Add 1581 1581 1235; Add 1092 1092 1581; Add 1313 1313 1092; Add 1284 1284 1313; Mul 1284 216 1284;
  Mul 1588 780 1077; Sub 1284 1284 1588; Mul 1588 781 1420; Add 1211 1211 1308; Add 1141 1141 1454;
  Sub 1211 1211 1141; Sub 1495 1495 1211; Add 1584 1584 1692; Add 1228 1228 1415; Sub 1584 1584 1228;
  Add 1495 1495 1584; Sub 1495 1495 1142; Add 1532 1532 1110; Add 1343 1343 1042; Sub 1532 1532 1343;
  Add 1658 1658 1337; Add 1539 1539 1434; Add 1658 1658 1539; Add 1464 1464 1271; Add 1665 1665 1444;
  Sub 1464 1464 1665; Add 1658 1658 1464; Sub 1532 1532 1658; Sub 1532 1532 1576; Add 1360 1360 1305;
  Add 1229 1229 1016; Sub 1360 1360 1229; Add 1125 1125 1463; Add 1436 1436 1017; Add 1125 1125 1436;
  Add 1487 1487 1548; Add 1254 1254 1700; Sub 1487 1487 1254; Add 1125 1125 1487; Sub 1360 1360 1125;
  Sub 1360 1360 1659; Add 1412 1412 1034; Add 1295 1295 1272; Sub 1412 1412 1295; Add 1347 1347 1416;
  Add 1599 1599 1280; Add 1347 1347 1599; Add 1131 1131 1144; Add 1565 1565 1181; Sub 1131 1131 1565;
  Add 1347 1347 1131; Sub 1412 1412 1347; Sub 1412 1412 1471; Add 1036 1036 1555; Add 1411 1411 1374;
  Sub 1036 1036 1411; Add 1554 1554 1542; Add 1489 1489 1526; Add 1554 1554 1489; Add 1631 1631 1590;
  Add 1333 1333 1401; Sub 1631 1631 1333; Add 1554 1554 1631; Sub 1036 1036 1554; Sub 1036 1036 1672;
  Add 1412 1412 1036; Add 1360 1360 1412; Add 1532 1532 1360; Add 1495 1495 1532; Mul 1495 215 1495;
  Add 1588 1588 1495; Sub 1284 1284 1588; Sub 1479 1479 1402; Sub 1483 1483 1537; Sub 1173 1173 1451;
  Sub 1445 1445 1288; Sub 1488 1488 1701; Add 1445 1445 1488; Add 1173 1173 1445; Add 1483 1483 1173;
  Add 1479 1479 1483; Mul 1479 540 1479; Mul 1402 625 1115; Sub 1479 1479 1402].
Definition casadi_f0_430 : list instruction := [
  Mul 1402 651 1232; Sub 1239 1239 1422; Add 1263 1263 1522; Add 1183 1183 1624; Add 1047 1047 1519;
  Add 1022 1022 1172; Add 1047 1047 1022; Add 1183 1183 1047; Add 1263 1263 1183; Add 1239 1239 1263;
  Mul 1239 544 1239; Add 1402 1402 1239; Add 1479 1479 1402; Sub 1284 1284 1479; Mul 1284 0 1284;
  Mul 1479 23 1470; Add 1284 1284 1479; Mul 1038 508 1038; Mul 1479 534 1442; Add 1038 1038 1479;
  Add 1285 1285 1643; Mul 1156 482 1156; Mul 1494 511 1494; Add 1156 1156 1494; Sub 1285 1285 1156;
  Add 1696 1696 1285; Mul 1387 490 1387; Mul 1081 514 1081; Add 1387 1387 1081; Sub 1696 1696 1387;
  Add 1133 1133 1696; Mul 1267 498 1267; Mul 1691 518 1691; Add 1267 1267 1691; Sub 1133 1133 1267;
  Add 1664 1664 1133; Mul 1645 522 1645; Mul 1406 506 1406; Sub 1645 1645 1406; Sub 1664 1664 1645;
  Mul 1645 526 1664; Mul 1406 784 1177; Add 1645 1645 1406; Add 1427 1427 1275; Mul 1090 1304 1090;
  Add 1505 1505 1090; Mul 1505 20 1505; Add 1427 1427 1505; Add 1154 1154 1427; Mul 1079 1153 1079;
  Add 1376 1376 1079; Mul 1376 37 1376; Add 1154 1154 1376; Add 1109 1109 1154; Mul 1399 1212 1399;
  Add 1563 1563 1399; Mul 1563 80 1563; Add 1109 1109 1563; Add 1162 1162 1109; Mul 1477 1293 1477;
  Add 1231 1231 1477; Mul 1231 100 1231; Sub 1162 1162 1231; Mul 1162 536 1162; Mul 1231 496 1187;
  Add 1162 1162 1231; Add 1645 1645 1162; Sub 1038 1038 1645; Mul 1645 546 1203; Mul 1162 538 1076;
  Add 1645 1645 1162; Mul 1162 791 1088; Mul 1279 215 1279; Mul 1231 222 1420; Add 1279 1279 1231;
  Mul 1137 216 1137; Mul 1231 229 1077; Sub 1137 1137 1231; Sub 1279 1279 1137; Mul 1137 540 1698;
  Mul 1231 227 1115; Sub 1137 1137 1231; Mul 1231 544 1466; Mul 1563 219 1232; Add 1231 1231 1563;
  Sub 1137 1137 1231; Add 1279 1279 1137; Mul 1137 526 1372; Mul 1231 543 1177; Add 1137 1137 1231;
  Mul 1088 536 1088; Mul 1231 537 1187; Add 1088 1088 1231; Sub 1137 1137 1088; Sub 1137 1279 1137;
  Mul 1137 141 1137; Mul 1088 537 1137; Add 1162 1162 1088; Sub 1645 1645 1162; Add 1038 1038 1645;
  Mul 1645 556 1248; Mul 1180 560 1180; Add 1162 1645 1180; Sub 1309 1162 1309; Sub 1475 1657 1475;
  Sub 1096 1418 1096; Add 1475 1475 1096; Add 1180 1180 1645; Sub 1582 1582 1180; Add 1475 1475 1582;
  Sub 1309 1309 1475; Mul 1475 570 1520; Mul 1480 574 1480; Add 1582 1475 1480; Sub 1502 1582 1502;
  Sub 1314 1314 1355; Sub 1369 1369 1281; Add 1314 1314 1369; Add 1480 1480 1475; Sub 1121 1121 1480;
  Add 1314 1314 1121; Sub 1502 1502 1314; Mul 1314 584 1431; Mul 1597 588 1597; Add 1121 1314 1597;
  Sub 1052 1121 1052; Sub 1447 1447 1114; Sub 1164 1164 1207; Add 1447 1447 1164; Add 1597 1597 1314;
  Sub 1510 1510 1597; Add 1447 1447 1510; Sub 1052 1052 1447; Mul 1447 597 1541; Mul 1365 601 1365;
  Add 1510 1447 1365; Sub 1544 1510 1544; Sub 1386 1386 1525; Sub 1682 1682 1567; Add 1386 1386 1682;
  Add 1365 1365 1447; Sub 1607 1607 1365; Add 1386 1386 1607; Sub 1544 1544 1386; Mul 1386 610 1583;
  Mul 1433 614 1433; Add 1607 1386 1433; Sub 1476 1607 1476; Sub 1697 1697 1616].
Definition casadi_f0_431 : list instruction := [
  Sub 1432 1432 1124; Add 1697 1697 1432; Add 1433 1433 1386; Sub 1327 1327 1433; Add 1697 1697 1327;
  Sub 1476 1476 1697; Add 1544 1544 1476; Add 1052 1052 1544; Add 1502 1502 1052; Add 1309 1309 1502;
  Mul 1309 216 1309; Mul 1697 251 1077; Sub 1309 1309 1697; Mul 1697 230 1506; Mul 1116 225 1116;
  Add 1327 1697 1116; Mul 1633 231 1633; Mul 1386 223 1571; Sub 1633 1633 1386; Sub 1327 1327 1633;
  Mul 1119 560 1119; Mul 1386 553 1248; Add 1432 1119 1386; Mul 1556 244 1556; Mul 1684 248 1684;
  Add 1124 1556 1684; Sub 1432 1432 1124; Sub 1327 1327 1432; Mul 1248 558 1248; Mul 1465 560 1465;
  Add 1432 1248 1465; Mul 1453 243 1453; Mul 1538 249 1538; Add 1124 1453 1538; Sub 1432 1432 1124;
  Add 1327 1327 1432; Mul 1258 219 1258; Mul 1466 239 1466; Add 1258 1258 1466; Mul 1107 227 1107;
  Mul 1698 246 1698; Add 1107 1107 1698; Add 1258 1258 1107; Mul 1653 467 1653; Mul 1384 525 1384;
  Sub 1653 1653 1384; Add 1258 1258 1653; Mul 1204 231 1204; Mul 1653 559 1571; Sub 1204 1204 1653;
  Mul 1653 616 1506; Mul 1515 225 1515; Add 1653 1653 1515; Add 1204 1204 1653; Add 1258 1258 1204;
  Mul 1258 213 1258; Sub 1327 1327 1258; Mul 1204 572 1520; Mul 1389 574 1389; Add 1653 1204 1389;
  Mul 1218 284 1218; Mul 1257 258 1257; Add 1515 1218 1257; Sub 1653 1653 1515; Mul 1515 297 1501;
  Mul 1384 271 1134; Add 1107 1515 1384; Mul 1698 282 1621; Mul 1466 300 1595; Add 1432 1698 1466;
  Add 1107 1107 1432; Mul 1642 574 1642; Mul 1520 567 1520; Add 1432 1642 1520; Mul 1213 279 1213;
  Mul 1021 276 1021; Add 1124 1213 1021; Sub 1432 1432 1124; Add 1107 1107 1432; Sub 1653 1653 1107;
  Mul 1182 255 1182; Mul 1107 280 1603; Add 1182 1182 1107; Mul 1417 278 1417; Mul 1107 266 1270;
  Add 1417 1417 1107; Add 1182 1182 1417; Mul 1310 296 1310; Mul 1547 472 1547; Add 1310 1310 1547;
  Add 1182 1182 1310; Mul 1310 573 1595; Mul 1409 282 1409; Add 1310 1310 1409; Mul 1409 617 1501;
  Mul 1496 271 1496; Add 1409 1409 1496; Sub 1310 1310 1409; Add 1182 1182 1310; Mul 1182 213 1182;
  Sub 1653 1653 1182; Mul 1310 586 1431; Mul 1297 588 1297; Add 1409 1310 1297; Mul 1321 338 1321;
  Mul 1654 312 1654; Add 1496 1321 1654; Sub 1409 1409 1496; Mul 1496 351 1557; Mul 1547 325 1118;
  Add 1417 1496 1547; Mul 1107 336 1441; Mul 1432 354 1568; Add 1124 1107 1432; Add 1417 1417 1124;
  Mul 1274 588 1274; Mul 1431 581 1431; Add 1124 1274 1431; Mul 1084 333 1084; Mul 1378 330 1378;
  Add 1616 1084 1378; Sub 1124 1124 1616; Add 1417 1417 1124; Sub 1409 1409 1417; Mul 1380 309 1380;
  Mul 1417 334 1689; Add 1380 1380 1417; Mul 1221 332 1221; Mul 1417 320 1200; Add 1221 1221 1417;
  Add 1380 1380 1221; Mul 1673 349 1673; Mul 1152 474 1152; Add 1673 1673 1152; Add 1380 1380 1673;
  Mul 1673 587 1568; Mul 1423 336 1423; Add 1673 1673 1423; Mul 1423 619 1557; Mul 1215 325 1215;
  Add 1423 1423 1215; Sub 1673 1673 1423; Add 1380 1380 1673; Mul 1380 213 1380; Sub 1409 1409 1380;
  Mul 1673 599 1541; Mul 1398 601 1398; Add 1423 1673 1398; Mul 1348 393 1348].
Definition casadi_f0_432 : list instruction := [
  Mul 1370 366 1370; Add 1215 1348 1370; Sub 1423 1423 1215; Mul 1215 406 1209; Mul 1152 381 1662;
  Add 1221 1215 1152; Mul 1417 391 1625; Mul 1124 409 1350; Add 1616 1417 1124; Add 1221 1221 1616;
  Mul 1605 601 1605; Mul 1541 594 1541; Add 1616 1605 1541; Mul 1551 388 1551; Mul 1151 385 1151;
  Add 1447 1551 1151; Sub 1616 1616 1447; Add 1221 1221 1616; Sub 1423 1423 1221; Mul 1223 363 1223;
  Mul 1221 389 1558; Add 1223 1223 1221; Mul 1086 387 1086; Mul 1221 374 1478; Add 1086 1086 1221;
  Add 1223 1223 1086; Mul 1277 405 1277; Mul 1523 476 1523; Add 1277 1277 1523; Add 1223 1223 1277;
  Mul 1277 600 1350; Mul 1679 391 1679; Add 1277 1277 1679; Mul 1679 621 1209; Mul 1112 381 1112;
  Add 1679 1679 1112; Sub 1277 1277 1679; Add 1223 1223 1277; Mul 1223 213 1223; Sub 1423 1423 1223;
  Mul 1277 612 1583; Mul 1208 614 1208; Add 1679 1277 1208; Mul 1440 447 1440; Mul 1179 420 1179;
  Add 1112 1440 1179; Sub 1679 1679 1112; Mul 1112 460 1104; Mul 1523 434 1467; Add 1086 1112 1523;
  Mul 1221 445 1628; Mul 1616 463 1535; Add 1447 1221 1616; Add 1086 1086 1447; Mul 1051 614 1051;
  Mul 1583 607 1583; Add 1447 1051 1583; Mul 1403 442 1403; Mul 1318 439 1318; Add 1682 1403 1318;
  Sub 1447 1447 1682; Add 1086 1086 1447; Sub 1679 1679 1086; Mul 1086 417 1687; Mul 1447 443 1694;
  Add 1086 1086 1447; Mul 1447 441 1354; Mul 1682 426 1690; Add 1447 1447 1682; Add 1086 1086 1447;
  Mul 1447 459 1543; Mul 1507 478 1507; Add 1447 1447 1507; Add 1086 1086 1447; Mul 1447 611 1535;
  Mul 1283 445 1283; Add 1447 1447 1283; Mul 1283 623 1104; Mul 1222 434 1222; Add 1283 1283 1222;
  Sub 1447 1447 1283; Add 1086 1086 1447; Mul 1086 213 1086; Sub 1679 1679 1086; Add 1423 1423 1679;
  Add 1409 1409 1423; Add 1653 1653 1409; Add 1327 1327 1653; Mul 1327 215 1327; Mul 1447 470 1420;
  Add 1327 1327 1447; Sub 1309 1309 1327; Mul 1327 225 1675; Mul 1447 624 1506; Add 1283 1327 1447;
  Mul 1222 231 1634; Mul 1507 650 1571; Sub 1222 1222 1507; Sub 1283 1283 1222; Mul 1604 213 1604;
  Add 1507 1283 1604; Mul 1595 655 1595; Mul 1486 282 1486; Add 1682 1595 1486; Sub 1682 1500 1682;
  Mul 1256 271 1256; Mul 1501 629 1501; Add 1567 1256 1501; Add 1682 1682 1567; Mul 1344 213 1344;
  Sub 1567 1682 1344; Mul 1568 659 1568; Mul 1647 336 1647; Add 1525 1568 1647; Sub 1525 1457 1525;
  Mul 1139 325 1139; Mul 1557 634 1557; Add 1314 1139 1557; Add 1525 1525 1314; Mul 1652 213 1652;
  Sub 1314 1525 1652; Mul 1350 663 1350; Mul 1639 391 1639; Add 1164 1350 1639; Sub 1164 1176 1164;
  Mul 1455 381 1455; Mul 1209 639 1209; Add 1207 1455 1209; Add 1164 1164 1207; Mul 1340 213 1340;
  Sub 1207 1164 1340; Mul 1114 667 1535; Mul 1545 445 1545; Add 1475 1114 1545; Sub 1475 1301 1475;
  Mul 1533 434 1533; Mul 1369 644 1104; Add 1281 1533 1369; Add 1475 1475 1281; Mul 1450 213 1450;
  Sub 1281 1475 1450; Add 1207 1207 1281; Add 1314 1314 1207; Add 1567 1567 1314; Add 1507 1507 1567;
  Mul 1507 540 1507; Mul 1355 250 1115; Sub 1507 1507 1355; Mul 1634 225 1634].
Definition casadi_f0_433 : list instruction := [
  Mul 1506 650 1506; Add 1355 1634 1506; Mul 1675 231 1675; Mul 1571 624 1571; Sub 1675 1675 1571;
  Add 1506 1506 1634; Mul 1622 242 1622; Mul 1499 626 1499; Sub 1622 1622 1499; Add 1499 1506 1622;
  Add 1634 1675 1499; Sub 1634 1355 1634; Add 1355 1355 1622; Add 1675 1675 1355; Sub 1506 1506 1675;
  Sub 1634 1634 1506; Sub 1598 1598 1196; Sub 1219 1219 1341; Sub 1598 1598 1219; Sub 1491 1491 1330;
  Sub 1255 1255 1391; Sub 1491 1491 1255; Sub 1018 1018 1287; Sub 1359 1359 1132; Sub 1018 1018 1359;
  Sub 1375 1375 1536; Sub 1320 1320 1175; Sub 1375 1375 1320; Add 1018 1018 1375; Add 1491 1491 1018;
  Add 1598 1598 1491; Add 1634 1634 1598; Mul 1320 544 1634; Mul 1175 806 1232; Add 1320 1320 1175;
  Add 1507 1507 1320; Sub 1309 1309 1507; Add 1038 1038 1309; Mul 1038 216 1038; Mul 1309 652 1077;
  Sub 1038 1038 1309; Mul 1309 804 1420; Mul 1316 508 1316; Mul 1507 521 1442; Add 1316 1316 1507;
  Add 1573 1573 1090; Mul 1573 20 1573; Add 1469 1469 1296; Sub 1573 1573 1469; Sub 1564 1573 1564;
  Add 1575 1575 1079; Mul 1575 37 1575; Add 1564 1564 1575; Sub 1383 1564 1383; Add 1570 1570 1399;
  Mul 1570 80 1570; Add 1383 1383 1570; Add 1529 1529 1383; Sub 1421 1421 1477; Mul 1421 100 1421;
  Add 1529 1529 1421; Mul 1529 526 1529; Mul 1421 499 1177; Add 1529 1529 1421; Mul 1664 536 1664;
  Mul 1421 784 1187; Add 1664 1664 1421; Add 1529 1529 1664; Sub 1316 1316 1529; Mul 1372 791 1372;
  Mul 1137 543 1137; Add 1372 1372 1137; Mul 1203 539 1203; Mul 1137 538 1367; Add 1203 1203 1137;
  Sub 1372 1372 1203; Add 1316 1316 1372; Add 1116 1116 1697; Sub 1116 1116 1633; Add 1538 1538 1453;
  Add 1465 1465 1248; Sub 1538 1538 1465; Sub 1116 1116 1538; Add 1684 1684 1556; Add 1386 1386 1119;
  Sub 1684 1684 1386; Add 1116 1116 1684; Add 1116 1116 1258; Add 1021 1021 1213; Add 1520 1520 1642;
  Sub 1021 1021 1520; Add 1466 1466 1698; Add 1384 1384 1515; Add 1466 1466 1384; Add 1257 1257 1218;
  Add 1389 1389 1204; Sub 1257 1257 1389; Add 1466 1466 1257; Sub 1021 1021 1466; Add 1021 1021 1182;
  Add 1378 1378 1084; Add 1431 1431 1274; Sub 1378 1378 1431; Add 1432 1432 1107; Add 1547 1547 1496;
  Add 1432 1432 1547; Add 1654 1654 1321; Add 1297 1297 1310; Sub 1654 1654 1297; Add 1432 1432 1654;
  Sub 1378 1378 1432; Add 1378 1378 1380; Add 1151 1151 1551; Add 1541 1541 1605; Sub 1151 1151 1541;
  Add 1124 1124 1417; Add 1152 1152 1215; Add 1124 1124 1152; Add 1370 1370 1348; Add 1398 1398 1673;
  Sub 1370 1370 1398; Add 1124 1124 1370; Sub 1151 1151 1124; Add 1151 1151 1223; Add 1318 1318 1403;
  Add 1583 1583 1051; Sub 1318 1318 1583; Add 1616 1616 1221; Add 1523 1523 1112; Add 1616 1616 1523;
  Add 1179 1179 1440; Add 1208 1208 1277; Sub 1179 1179 1208; Add 1616 1616 1179; Sub 1318 1318 1616;
  Add 1318 1318 1086; Add 1151 1151 1318; Add 1378 1378 1151; Add 1021 1021 1378; Add 1116 1116 1021;
  Mul 1116 216 1116; Mul 1086 507 1077; Sub 1116 1116 1086; Add 1418 1418 1657; Sub 1180 1180 1312;
  Sub 1418 1418 1180; Sub 1120 1120 1162; Add 1418 1418 1120; Add 1233 1233 1300].
Definition casadi_f0_434 : list instruction := [
  Sub 1480 1480 1361; Sub 1233 1233 1480; Sub 1338 1338 1582; Add 1233 1233 1338; Add 1244 1244 1289;
  Sub 1597 1597 1511; Sub 1244 1244 1597; Sub 1550 1550 1121; Add 1244 1244 1550; Add 1504 1504 1129;
  Sub 1365 1365 1651; Sub 1504 1504 1365; Sub 1660 1660 1510; Add 1504 1504 1660; Add 1032 1032 1656;
  Sub 1433 1433 1191; Sub 1032 1032 1433; Sub 1060 1060 1607; Add 1032 1032 1060; Add 1504 1504 1032;
  Add 1244 1244 1504; Add 1233 1233 1244; Add 1418 1418 1233; Mul 1418 215 1418; Mul 1060 226 1420;
  Add 1418 1418 1060; Sub 1116 1116 1418; Sub 1355 1355 1499; Sub 1611 1611 1549; Sub 1201 1201 1192;
  Sub 1093 1093 1171; Sub 1230 1230 1413; Add 1093 1093 1230; Add 1201 1201 1093; Add 1611 1611 1201;
  Add 1355 1355 1611; Mul 1413 540 1355; Mul 1171 805 1115; Sub 1413 1413 1171; Add 1447 1447 1327;
  Sub 1222 1222 1447; Sub 1447 1222 1604; Add 1486 1486 1595; Add 1501 1501 1256; Add 1500 1500 1501;
  Sub 1486 1486 1500; Add 1500 1486 1344; Add 1647 1647 1568; Add 1557 1557 1139; Add 1457 1457 1557;
  Sub 1647 1647 1457; Add 1457 1647 1652; Add 1639 1639 1350; Add 1209 1209 1455; Add 1176 1176 1209;
  Sub 1639 1639 1176; Add 1176 1639 1340; Add 1545 1545 1114; Add 1369 1369 1533; Add 1301 1301 1369;
  Sub 1545 1545 1301; Add 1301 1545 1450; Add 1176 1176 1301; Add 1457 1457 1176; Add 1500 1500 1457;
  Add 1447 1447 1500; Mul 1447 544 1447; Mul 1369 693 1232; Add 1447 1447 1369; Add 1413 1413 1447;
  Sub 1116 1116 1413; Add 1316 1316 1116; Mul 1316 215 1316; Add 1309 1309 1316; Sub 1038 1038 1309;
  Sub 1283 1283 1604; Add 1682 1682 1344; Add 1525 1525 1652; Add 1164 1164 1340; Add 1475 1475 1450;
  Add 1164 1164 1475; Add 1525 1525 1164; Add 1682 1682 1525; Add 1283 1283 1682; Mul 1283 216 1283;
  Mul 1309 305 1077; Sub 1283 1283 1309; Mul 1355 215 1355; Mul 1309 805 1420; Add 1355 1355 1309;
  Sub 1283 1283 1355; Add 1076 1076 1283; Mul 1076 540 1076; Mul 1283 307 1115; Sub 1076 1076 1283;
  Mul 1283 360 1232; Mul 1634 216 1634; Mul 1355 806 1077; Sub 1634 1634 1355; Add 1222 1222 1604;
  Sub 1486 1486 1344; Sub 1647 1647 1652; Sub 1639 1639 1340; Sub 1545 1545 1450; Add 1639 1639 1545;
  Add 1647 1647 1639; Add 1486 1486 1647; Add 1222 1222 1486; Mul 1222 215 1222; Mul 1450 700 1420;
  Add 1222 1222 1450; Sub 1634 1634 1222; Add 1367 1367 1634; Mul 1367 544 1367; Add 1283 1283 1367;
  Add 1076 1076 1283; Sub 1038 1038 1076; Mul 1038 1 1038; Mul 1076 469 1135; Add 1038 1038 1076;
  Add 1284 1284 1038; Mul 1038 602 1133; Mul 1076 783 1648; Add 1038 1038 1076; Mul 1076 670 1109;
  Mul 1283 488 1585; Add 1076 1076 1283; Add 1038 1038 1076; Mul 1076 671 1346; Mul 1283 532 1419;
  Add 1076 1076 1283; Sub 1038 1038 1076; Mul 1076 679 1146; Mul 1283 523 1572; Add 1076 1076 1283;
  Mul 1283 796 1493; Mul 1603 680 1603; Mul 1367 255 1546; Add 1603 1603 1367; Mul 1270 674 1270;
  Mul 1367 278 1252; Sub 1270 1270 1367; Sub 1603 1603 1270; Mul 1349 216 1349; Mul 1270 294 1077;
  Sub 1349 1349 1270; Mul 1452 215 1452; Mul 1270 299 1420; Add 1452 1452 1270].
Definition casadi_f0_435 : list instruction := [
  Add 1349 1349 1452; Sub 1603 1603 1349; Mul 1349 670 1493; Mul 1452 502 1585; Add 1349 1349 1452;
  Mul 1452 602 1082; Mul 1270 505 1648; Add 1452 1452 1270; Sub 1349 1349 1452; Sub 1349 1603 1349;
  Mul 1349 672 1349; Mul 1452 502 1349; Add 1283 1283 1452; Sub 1076 1076 1283; Add 1038 1038 1076;
  Mul 1076 674 1567; Mul 1283 794 1252; Sub 1076 1076 1283; Mul 1283 680 1598; Mul 1452 689 1546;
  Add 1270 1283 1452; Add 1364 1364 1699; Add 1282 1282 1356; Add 1134 1134 1282; Sub 1364 1364 1134;
  Add 1134 1364 1522; Add 1393 1393 1589; Add 1646 1646 1075; Add 1118 1118 1646; Sub 1393 1393 1118;
  Add 1118 1393 1624; Add 1674 1674 1577; Add 1094 1094 1552; Add 1662 1662 1094; Sub 1674 1674 1662;
  Add 1662 1674 1519; Add 1513 1513 1503; Add 1609 1609 1473; Add 1467 1467 1609; Sub 1513 1513 1467;
  Add 1467 1513 1172; Add 1662 1662 1467; Add 1118 1118 1662; Add 1134 1134 1118; Mul 1134 676 1134;
  Mul 1609 410 1242; Add 1134 1134 1609; Sub 1270 1270 1134; Add 1076 1076 1270; Mul 1270 215 1653;
  Mul 1134 461 1420; Add 1270 1270 1134; Mul 1502 216 1502; Mul 1134 277 1077; Sub 1502 1502 1134;
  Sub 1270 1270 1502; Add 1076 1076 1270; Add 1038 1038 1076; Mul 1038 216 1038; Mul 1076 707 1077;
  Sub 1038 1038 1076; Mul 1076 793 1420; Mul 1270 602 1383; Mul 1134 491 1648; Add 1270 1270 1134;
  Mul 1134 670 1133; Mul 1609 783 1585; Add 1134 1134 1609; Add 1270 1270 1134; Mul 1134 671 1106;
  Mul 1609 517 1419; Add 1134 1134 1609; Sub 1270 1270 1134; Mul 1134 796 1082; Mul 1609 505 1349;
  Add 1134 1134 1609; Mul 1609 675 1146; Mul 1473 523 1189; Add 1609 1609 1473; Sub 1134 1134 1609;
  Add 1270 1270 1134; Mul 1134 674 1611; Mul 1609 682 1252; Sub 1134 1134 1609; Mul 1609 680 1500;
  Mul 1473 808 1546; Add 1609 1609 1473; Add 1540 1540 1185; Sub 1621 1621 1540; Add 1161 1161 1627;
  Add 1621 1621 1161; Sub 1161 1621 1537; Add 1468 1468 1509; Sub 1441 1441 1468; Add 1559 1559 1111;
  Add 1441 1441 1559; Sub 1559 1441 1451; Add 1593 1593 1311; Sub 1625 1625 1593; Add 1188 1188 1087;
  Add 1625 1625 1188; Sub 1188 1625 1288; Add 1062 1062 1671; Sub 1628 1628 1062; Add 1668 1668 1649;
  Add 1628 1628 1668; Sub 1668 1628 1701; Add 1188 1188 1668; Add 1559 1559 1188; Add 1161 1161 1559;
  Mul 1161 676 1161; Mul 1649 301 1242; Add 1161 1161 1649; Sub 1609 1609 1161; Add 1609 1134 1609;
  Mul 1233 215 1233; Mul 1161 303 1420; Add 1649 1233 1161; Mul 1062 216 1021; Mul 1671 468 1077;
  Sub 1062 1062 1671; Sub 1649 1649 1062; Add 1609 1609 1649; Add 1270 1270 1609; Mul 1270 215 1270;
  Add 1076 1076 1270; Sub 1270 1038 1076; Mul 1611 215 1611; Mul 1609 682 1420; Add 1649 1611 1609;
  Mul 1062 216 1682; Mul 1671 792 1077; Sub 1062 1062 1671; Sub 1649 1649 1062; Add 1572 1572 1649;
  Mul 1649 540 1572; Mul 1062 233 1115; Sub 1649 1649 1062; Mul 1062 789 1232; Mul 1671 215 1486;
  Mul 1087 686 1420; Add 1671 1671 1087; Mul 1598 216 1598; Mul 1087 689 1077; Sub 1598 1598 1087;
  Sub 1671 1671 1598; Add 1189 1189 1671; Mul 1671 544 1189; Add 1062 1062 1671].
Definition casadi_f0_436 : list instruction := [
  Add 1649 1649 1062; Sub 1270 1270 1649; Mul 1270 2 1270; Mul 1649 285 1140; Add 1270 1270 1649;
  Add 1284 1284 1270; Mul 1270 677 1089; Mul 1649 530 1261; Add 1270 1270 1649; Mul 1649 706 1696;
  Mul 1062 782 1695; Add 1649 1649 1062; Mul 1062 712 1154; Mul 1671 481 1353; Add 1062 1062 1671;
  Add 1649 1649 1062; Sub 1270 1270 1649; Mul 1649 719 1458; Mul 1062 519 1439; Add 1649 1649 1062;
  Mul 1062 709 1055; Mul 1315 216 1315; Mul 1671 348 1077; Sub 1315 1315 1671; Mul 1620 215 1620;
  Mul 1671 353 1420; Add 1620 1620 1671; Add 1315 1315 1620; Mul 1200 714 1200; Mul 1620 332 1400;
  Add 1200 1200 1620; Mul 1689 718 1689; Mul 1620 309 1528; Add 1689 1689 1620; Sub 1200 1200 1689;
  Add 1315 1315 1200; Mul 1200 706 1449; Mul 1689 497 1695; Add 1200 1200 1689; Mul 1689 712 1055;
  Mul 1620 494 1353; Add 1689 1689 1620; Sub 1200 1200 1689; Sub 1200 1315 1200; Mul 1200 156 1200;
  Mul 1689 494 1200; Add 1062 1062 1689; Sub 1649 1649 1062; Add 1270 1270 1649; Mul 1649 716 1118;
  Mul 1062 403 1425; Add 1649 1649 1062; Mul 1062 718 1491; Mul 1689 696 1528; Add 1620 1062 1689;
  Sub 1649 1649 1620; Mul 1620 714 1314; Mul 1671 797 1400; Add 1620 1620 1671; Sub 1649 1649 1620;
  Mul 1052 216 1052; Mul 1620 331 1077; Sub 1052 1052 1620; Mul 1620 215 1409; Mul 1671 414 1420;
  Add 1620 1620 1671; Sub 1620 1052 1620; Add 1649 1649 1620; Add 1270 1270 1649; Mul 1270 216 1270;
  Mul 1649 790 1077; Sub 1270 1270 1649; Mul 1649 704 1420; Mul 1620 677 1395; Mul 1671 513 1261;
  Add 1620 1620 1671; Mul 1671 706 1564; Mul 1087 483 1695; Add 1671 1671 1087; Mul 1087 712 1696;
  Mul 1593 782 1353; Add 1087 1087 1593; Add 1671 1671 1087; Sub 1620 1620 1671; Mul 1671 709 1449;
  Mul 1087 497 1200; Add 1671 1671 1087; Mul 1087 711 1458; Mul 1593 519 1190; Add 1087 1087 1593;
  Sub 1671 1671 1087; Add 1620 1620 1671; Mul 1671 716 1559; Mul 1087 293 1425; Add 1671 1671 1087;
  Mul 1087 718 1457; Mul 1593 415 1528; Add 1087 1087 1593; Sub 1671 1671 1087; Mul 1087 714 1201;
  Mul 1593 685 1400; Add 1311 1087 1593; Sub 1671 1671 1311; Mul 1311 216 1378; Mul 1111 416 1077;
  Sub 1311 1311 1111; Mul 1244 215 1244; Mul 1111 357 1420; Add 1468 1244 1111; Sub 1311 1311 1468;
  Add 1671 1671 1311; Add 1620 1620 1671; Mul 1620 215 1620; Add 1649 1649 1620; Sub 1620 1270 1649;
  Mul 1671 216 1525; Mul 1311 795 1077; Sub 1671 1671 1311; Mul 1201 215 1201; Mul 1311 685 1420;
  Add 1468 1201 1311; Sub 1671 1671 1468; Add 1439 1439 1671; Mul 1671 540 1439; Mul 1468 697 1115;
  Sub 1671 1671 1468; Mul 1468 695 1232; Mul 1491 216 1491; Mul 1509 696 1077; Sub 1491 1491 1509;
  Mul 1509 215 1647; Mul 1627 448 1420; Add 1509 1509 1627; Sub 1509 1491 1509; Add 1190 1190 1509;
  Mul 1509 544 1190; Add 1468 1468 1509; Add 1671 1671 1468; Sub 1671 1620 1671; Mul 1671 3 1671;
  Mul 1468 691 1562; Add 1671 1671 1468; Add 1284 1284 1671; Mul 1671 715 1285; Mul 1468 606 1123;
  Add 1671 1671 1468; Mul 1468 721 1427; Mul 1509 786 1105; Add 1468 1468 1509].
Definition casadi_f0_437 : list instruction := [
  Add 1671 1671 1468; Mul 1468 722 1396; Mul 1509 528 1517; Add 1468 1468 1509; Add 1671 1671 1468;
  Mul 1468 730 1362; Mul 1509 515 1206; Add 1468 1468 1509; Mul 1509 683 1325; Mul 1128 310 1128;
  Mul 1627 408 1461; Add 1128 1128 1627; Mul 1608 327 1608; Mul 1627 404 1602; Add 1608 1608 1627;
  Sub 1128 1128 1608; Mul 1558 731 1558; Mul 1608 363 1150; Add 1558 1558 1608; Mul 1478 725 1478;
  Mul 1608 387 1484; Add 1478 1478 1608; Sub 1558 1558 1478; Add 1128 1128 1558; Mul 1558 721 1325;
  Mul 1478 486 1105; Add 1558 1558 1478; Mul 1478 715 1481; Mul 1608 489 1123; Add 1478 1478 1608;
  Sub 1558 1558 1478; Sub 1558 1128 1558; Mul 1558 723 1558; Mul 1478 486 1558; Add 1509 1509 1478;
  Sub 1468 1468 1509; Add 1671 1671 1468; Mul 1468 725 1207; Mul 1509 800 1484; Add 1468 1468 1509;
  Mul 1509 731 1018; Mul 1478 703 1150; Add 1608 1509 1478; Mul 1627 727 1662; Mul 1540 306 1326;
  Add 1627 1627 1540; Add 1608 1608 1627; Add 1468 1468 1608; Mul 1608 310 1423; Mul 1627 361 1461;
  Add 1608 1608 1627; Mul 1544 327 1544; Mul 1627 386 1602; Add 1540 1544 1627; Mul 1185 318 1581;
  Mul 1473 59 1195; Add 1185 1185 1473; Add 1540 1540 1185; Add 1608 1608 1540; Sub 1468 1468 1608;
  Add 1671 1671 1468; Mul 1468 216 1671; Mul 1608 690 1077; Sub 1468 1468 1608; Mul 1608 807 1420;
  Mul 1540 715 1573; Mul 1185 705 1123; Add 1540 1540 1185; Mul 1185 721 1285; Mul 1473 606 1105;
  Add 1185 1185 1473; Add 1540 1540 1185; Mul 1185 722 1193; Mul 1473 510 1517; Add 1185 1185 1473;
  Add 1540 1540 1185; Mul 1185 683 1481; Mul 1473 489 1558; Add 1185 1185 1473; Mul 1473 726 1362;
  Mul 1503 515 1601; Add 1473 1473 1503; Sub 1185 1185 1473; Add 1540 1540 1185; Mul 1185 725 1093;
  Mul 1473 692 1484; Add 1503 1185 1473; Mul 1094 731 1176; Mul 1552 465 1150; Add 1094 1094 1552;
  Mul 1552 727 1188; Mul 1577 785 1326; Add 1552 1552 1577; Add 1094 1094 1552; Add 1503 1503 1094;
  Mul 1504 310 1504; Mul 1094 412 1461; Add 1552 1504 1094; Mul 1577 327 1151; Mul 1646 407 1602;
  Add 1577 1577 1646; Mul 1646 318 1412; Mul 1075 580 1195; Add 1646 1646 1075; Add 1577 1577 1646;
  Add 1552 1552 1577; Sub 1503 1503 1552; Add 1540 1540 1503; Mul 1503 215 1540; Add 1608 1608 1503;
  Sub 1503 1468 1608; Mul 1093 310 1093; Mul 1552 692 1461; Add 1577 1093 1552; Mul 1646 327 1164;
  Mul 1075 798 1602; Add 1646 1646 1075; Mul 1075 318 1445; Mul 1589 640 1195; Add 1075 1075 1589;
  Add 1646 1646 1075; Add 1577 1577 1646; Sub 1206 1206 1577; Mul 1577 540 1206; Mul 1646 811 1115;
  Sub 1577 1577 1646; Mul 1646 813 1232; Mul 1075 310 1639; Mul 1589 464 1461; Add 1075 1075 1589;
  Mul 1018 327 1018; Mul 1589 703 1602; Add 1282 1018 1589; Mul 1356 318 1047; Mul 1699 662 1195;
  Add 1356 1356 1699; Add 1282 1282 1356; Add 1075 1075 1282; Sub 1601 1601 1075; Mul 1075 544 1601;
  Add 1646 1646 1075; Add 1577 1577 1646; Sub 1577 1503 1577; Mul 1577 4 1577; Mul 1646 812 1117;
  Add 1577 1577 1646; Add 1284 1284 1577; Mul 1577 728 1643; Mul 1646 609 1224].
Definition casadi_f0_438 : list instruction := [
  Add 1577 1577 1646; Mul 1646 733 1275; Mul 1075 604 1278; Add 1646 1646 1075; Add 1577 1577 1646;
  Mul 1646 734 1354; Mul 1075 426 1650; Add 1646 1646 1075; Add 1577 1577 1646; Mul 1646 739 1574;
  Mul 1075 438 1167; Add 1646 1646 1075; Mul 1075 816 1535; Mul 1259 358 1259; Mul 1282 462 1443;
  Add 1259 1259 1282; Mul 1324 372 1324; Mul 1282 458 1635; Add 1324 1324 1282; Sub 1259 1259 1324;
  Mul 1694 741 1694; Mul 1324 417 1205; Add 1694 1694 1324; Mul 1690 736 1690; Mul 1324 441 1600;
  Add 1690 1690 1324; Sub 1694 1694 1690; Add 1259 1259 1694; Mul 1694 733 1535; Mul 1690 445 1278;
  Add 1694 1694 1690; Mul 1690 728 1104; Mul 1324 434 1224; Add 1690 1690 1324; Sub 1694 1694 1690;
  Sub 1259 1259 1694; Mul 1259 430 1259; Mul 1694 445 1259; Add 1075 1075 1694; Sub 1646 1646 1075;
  Add 1577 1577 1646; Mul 1646 736 1281; Mul 1075 803 1600; Add 1646 1646 1075; Mul 1075 741 1375;
  Mul 1694 710 1205; Add 1690 1075 1694; Mul 1324 738 1467; Mul 1282 356 1317; Add 1324 1324 1282;
  Add 1690 1690 1324; Add 1646 1646 1690; Mul 1690 358 1679; Mul 1324 352 1443; Add 1690 1690 1324;
  Mul 1476 372 1476; Mul 1324 440 1635; Add 1282 1476 1324; Mul 1356 369 1235; Mul 1699 36 1456;
  Add 1356 1356 1699; Add 1282 1282 1356; Add 1690 1690 1282; Sub 1646 1646 1690; Add 1577 1577 1646;
  Mul 1646 216 1577; Mul 1690 814 1077; Sub 1646 1646 1690; Mul 1690 817 1420; Mul 1224 13 1224;
  Mul 1282 728 1296; Sub 1224 1224 1282; Mul 1282 733 1643; Mul 1278 609 1278; Add 1282 1282 1278;
  Add 1224 1224 1282; Mul 1282 734 1687; Mul 1650 443 1650; Add 1282 1282 1650; Add 1224 1224 1282;
  Mul 1282 816 1104; Mul 1650 434 1259; Add 1282 1282 1650; Mul 1650 735 1574; Mul 1278 438 1194;
  Add 1650 1650 1278; Sub 1282 1282 1650; Add 1224 1224 1282; Mul 1282 736 1230; Mul 1650 699 1600;
  Add 1278 1282 1650; Mul 1356 741 1301; Mul 1699 394 1205; Add 1356 1356 1699; Mul 1699 738 1668;
  Mul 1367 245 1317; Add 1699 1699 1367; Add 1356 1356 1699; Add 1278 1278 1356; Mul 1032 358 1032;
  Mul 1356 466 1443; Add 1699 1032 1356; Mul 1367 372 1318; Mul 1634 359 1635; Add 1367 1367 1634;
  Mul 1634 369 1036; Mul 1222 593 1456; Add 1634 1634 1222; Add 1367 1367 1634; Add 1699 1699 1367;
  Sub 1278 1278 1699; Add 1224 1224 1278; Mul 1278 215 1224; Add 1690 1690 1278; Sub 1278 1646 1690;
  Mul 1230 358 1230; Mul 1699 699 1443; Add 1367 1230 1699; Mul 1634 372 1475; Mul 1222 801 1635;
  Add 1634 1634 1222; Mul 1222 369 1488; Mul 1450 645 1456; Add 1222 1222 1450; Add 1634 1634 1222;
  Add 1367 1367 1634; Sub 1167 1167 1367; Mul 1367 540 1167; Mul 1634 820 1115; Sub 1367 1367 1634;
  Mul 1634 822 1232; Mul 1222 358 1545; Mul 1450 457 1443; Add 1222 1222 1450; Mul 1375 372 1375;
  Mul 1450 710 1635; Add 1340 1375 1450; Mul 1652 369 1022; Mul 1344 666 1456; Add 1652 1652 1344;
  Add 1340 1340 1652; Add 1222 1222 1340; Sub 1194 1194 1222; Mul 1222 544 1194; Add 1634 1634 1222;
  Add 1367 1367 1634; Sub 1367 1278 1367; Mul 1367 5 1367; Mul 1634 821 1217].
Definition casadi_f0_439 : list instruction := [
  Add 1367 1367 1634; Add 1284 1284 1367; Mul 1669 85 1669; Mul 1579 79 1579; Sub 1669 1669 1579;
  Mul 1560 54 1560; Mul 1276 61 1276; Sub 1560 1560 1276; Mul 1638 19 1638; Mul 1276 763 1136;
  Sub 1638 1638 1276; Mul 1276 751 1410; Mul 1610 35 1610; Add 1276 1276 1610; Sub 1638 1638 1276;
  Mul 1680 55 1680; Mul 1037 62 1037; Sub 1680 1680 1037; Add 1638 1638 1680; Add 1560 1560 1638;
  Mul 1426 86 1426; Mul 1049 91 1049; Sub 1426 1426 1049; Add 1426 1560 1426; Add 1669 1669 1426;
  Mul 1524 102 1524; Sub 1524 1669 1524; Mul 1566 101 1566; Add 1524 1524 1566; Add 1284 1284 1524;
  Mul 1524 777 1284; Sub 1292 1292 1524; Add 1578 1578 1292; Div 1292 1158 92; Mul 1524 1023 1126;
  Sub 1292 1292 1524; Mul 1524 767 1292; Mul 1483 674 1483; Mul 1566 630 1252; Sub 1483 1483 1566;
  Mul 1566 654 1546; Mul 1263 680 1263; Add 1566 1566 1263; Add 1587 1587 1459; Sub 1566 1566 1587;
  Add 1483 1483 1566; Mul 1566 615 1420; Mul 1532 215 1532; Add 1566 1566 1532; Mul 1313 216 1313;
  Mul 1532 7 1077; Sub 1313 1313 1532; Sub 1566 1566 1313; Add 1483 1483 1566; Mul 1483 0 1483;
  Mul 1566 771 1470; Add 1483 1483 1566; Mul 1566 748 1145; Mul 1313 216 1146; Mul 1532 523 1077;
  Sub 1313 1313 1532; Add 1313 1252 1313; Mul 1313 672 1313; Mul 1532 545 1313; Sub 1566 1566 1532;
  Mul 1532 216 1493; Mul 1587 502 1077; Sub 1532 1532 1587; Mul 1587 215 1082; Mul 1459 505 1420;
  Add 1587 1587 1459; Add 1532 1532 1587; Sub 1532 1532 1242; Mul 1532 672 1532; Mul 1587 504 1532;
  Mul 1459 750 1279; Add 1587 1587 1459; Mul 1459 215 1146; Mul 1263 523 1420; Add 1459 1459 1263;
  Sub 1459 1546 1459; Mul 1459 672 1459; Mul 1263 541 1459; Mul 1426 627 1216; Add 1263 1263 1426;
  Sub 1587 1587 1263; Add 1566 1566 1587; Mul 1106 215 1106; Mul 1587 517 1420; Add 1106 1106 1587;
  Mul 1346 216 1346; Mul 1587 532 1077; Sub 1346 1346 1587; Sub 1106 1106 1346; Mul 1346 627 1493;
  Mul 1587 502 1459; Add 1346 1346 1587; Mul 1587 748 1082; Mul 1263 505 1313; Sub 1587 1587 1263;
  Sub 1346 1346 1587; Add 1106 1106 1346; Mul 1106 508 1106; Mul 1346 744 1442; Add 1106 1106 1346;
  Mul 1346 215 1133; Mul 1587 783 1420; Add 1346 1346 1587; Mul 1109 216 1109; Mul 1587 488 1077;
  Sub 1109 1109 1587; Sub 1346 1346 1109; Mul 1109 748 1146; Mul 1313 523 1313; Sub 1109 1109 1313;
  Mul 1493 750 1493; Mul 1313 502 1532; Add 1493 1493 1313; Sub 1109 1109 1493; Add 1346 1346 1109;
  Mul 1346 536 1346; Mul 1109 824 1187; Add 1346 1346 1109; Sub 1106 1106 1346; Mul 1383 215 1383;
  Mul 1346 491 1420; Add 1383 1383 1346; Mul 1133 216 1133; Mul 1346 783 1077; Sub 1133 1133 1346;
  Sub 1383 1383 1133; Mul 1082 750 1082; Mul 1532 505 1532; Add 1082 1082 1532; Mul 1146 627 1146;
  Mul 1459 523 1459; Add 1146 1146 1459; Sub 1082 1082 1146; Add 1383 1383 1082; Mul 1383 526 1383;
  Mul 1082 825 1177; Add 1383 1383 1082; Sub 1106 1106 1383; Add 1566 1566 1106; Mul 1682 674 1682;
  Mul 1106 792 1252; Sub 1682 1682 1106; Add 1452 1452 1283; Mul 1283 298 1242].
Definition casadi_f0_440 : list instruction := [
  Sub 1364 1364 1522; Sub 1393 1393 1624; Sub 1674 1674 1519; Sub 1513 1513 1172; Add 1674 1674 1513;
  Add 1393 1393 1674; Add 1364 1364 1393; Mul 1172 676 1364; Add 1283 1283 1172; Sub 1452 1452 1283;
  Add 1682 1682 1452; Mul 1452 468 1420; Mul 1021 215 1021; Add 1452 1452 1021; Sub 1452 1452 1502;
  Add 1682 1682 1452; Mul 1682 216 1682; Mul 1452 823 1077; Sub 1682 1682 1452; Mul 1452 686 1546;
  Mul 1486 680 1486; Add 1452 1452 1486; Mul 1486 232 1242; Add 1621 1621 1537; Add 1441 1441 1451;
  Add 1625 1625 1288; Add 1628 1628 1701; Add 1625 1625 1628; Add 1441 1441 1625; Add 1621 1621 1441;
  Mul 1701 676 1621; Add 1486 1486 1701; Sub 1452 1452 1486; Add 1134 1134 1452; Add 1161 1161 1233;
  Mul 1653 216 1653; Mul 1233 461 1077; Sub 1653 1653 1233; Sub 1161 1161 1653; Add 1134 1134 1161;
  Mul 1134 215 1134; Mul 1161 668 1420; Add 1134 1134 1161; Sub 1682 1682 1134; Add 1609 1609 1611;
  Mul 1567 216 1567; Mul 1611 794 1077; Sub 1567 1567 1611; Sub 1609 1609 1567; Mul 1609 540 1609;
  Mul 1567 664 1115; Sub 1609 1609 1567; Mul 1567 808 1420; Mul 1500 215 1500; Add 1567 1567 1500;
  Sub 1567 1567 1598; Mul 1567 544 1567; Mul 1598 642 1232; Add 1567 1567 1598; Add 1609 1609 1567;
  Sub 1682 1682 1609; Add 1566 1566 1682; Mul 1566 1 1566; Mul 1682 760 1135; Add 1566 1566 1682;
  Add 1483 1483 1566; Mul 1572 674 1572; Mul 1566 233 1252; Sub 1572 1572 1566; Mul 1566 789 1546;
  Mul 1189 680 1189; Add 1566 1566 1189; Mul 1189 637 1242; Mul 1621 215 1621; Mul 1682 232 1420;
  Add 1621 1621 1682; Mul 1364 216 1364; Mul 1682 298 1077; Sub 1364 1364 1682; Sub 1621 1621 1364;
  Add 1349 1349 1621; Mul 1349 676 1349; Add 1189 1189 1349; Sub 1566 1566 1189; Add 1572 1572 1566;
  Sub 1076 1076 1038; Add 1572 1572 1076; Mul 1572 2 1572; Mul 1076 826 1140; Add 1572 1572 1076;
  Add 1483 1483 1572; Mul 1572 674 1439; Mul 1076 697 1252; Sub 1572 1572 1076; Mul 1076 695 1546;
  Mul 1038 680 1190; Add 1076 1076 1038; Mul 1038 647 1242; Mul 1566 216 1393; Mul 1189 411 1077;
  Sub 1566 1566 1189; Mul 1189 215 1441; Mul 1349 302 1420; Add 1189 1189 1349; Sub 1566 1566 1189;
  Add 1200 1200 1566; Mul 1566 676 1200; Add 1038 1038 1566; Sub 1076 1076 1038; Add 1572 1572 1076;
  Sub 1649 1649 1270; Add 1572 1572 1649; Mul 1572 3 1572; Mul 1649 347 1562; Add 1572 1572 1649;
  Add 1483 1483 1572; Mul 1572 674 1206; Mul 1649 811 1252; Sub 1572 1572 1649; Mul 1649 813 1546;
  Mul 1270 680 1601; Add 1649 1649 1270; Mul 1270 802 1242; Mul 1076 310 1625; Mul 1038 252 1461;
  Add 1076 1076 1038; Mul 1038 327 1674; Mul 1566 339 1602; Add 1038 1038 1566; Mul 1435 318 1435;
  Mul 1566 701 1195; Add 1189 1435 1566; Add 1038 1038 1189; Add 1076 1076 1038; Sub 1558 1558 1076;
  Mul 1076 676 1558; Add 1270 1270 1076; Sub 1649 1649 1270; Add 1572 1572 1649; Sub 1608 1608 1468;
  Add 1572 1572 1608; Mul 1572 4 1572; Mul 1608 698 1117; Add 1572 1572 1608; Add 1483 1483 1572;
  Mul 1572 674 1167; Mul 1608 820 1252; Sub 1572 1572 1608; Mul 1608 822 1546].
Definition casadi_f0_441 : list instruction := [
  Mul 1468 680 1194; Add 1608 1608 1468; Mul 1468 788 1242; Mul 1649 358 1628; Mul 1270 234 1443;
  Add 1649 1649 1270; Mul 1270 372 1513; Mul 1076 355 1635; Add 1270 1270 1076; Mul 1460 369 1460;
  Mul 1076 708 1456; Add 1038 1460 1076; Add 1270 1270 1038; Add 1649 1649 1270; Sub 1259 1259 1649;
  Mul 1649 676 1259; Add 1468 1468 1649; Sub 1608 1608 1468; Add 1572 1572 1608; Sub 1690 1690 1646;
  Add 1572 1572 1690; Mul 1572 5 1572; Mul 1690 809 1217; Add 1572 1572 1690; Add 1483 1483 1572;
  Sub 1669 1669 1483; Mul 1483 778 1669; Add 1524 1524 1483; Sub 1578 1578 1524; Div 1524 1028 92;
  Mul 1483 1516 1126; Sub 1524 1524 1483; Mul 1483 775 1524; Add 1382 1382 1681; Mul 1681 658 1528;
  Mul 1183 718 1183; Add 1681 1681 1183; Sub 1382 1382 1681; Mul 1681 635 1400; Mul 1173 714 1173;
  Add 1681 1681 1173; Sub 1382 1382 1681; Mul 1092 216 1092; Mul 1681 90 1077; Sub 1092 1092 1681;
  Mul 1681 566 1420; Mul 1360 215 1360; Add 1681 1681 1360; Sub 1092 1092 1681; Add 1382 1382 1092;
  Mul 1382 0 1382; Mul 1092 818 1470; Add 1382 1382 1092; Mul 1092 216 1458; Mul 1681 519 1077;
  Sub 1092 1092 1681; Sub 1092 1092 1400; Mul 1092 156 1092; Mul 1681 545 1092; Mul 1360 684 1145;
  Add 1681 1681 1360; Mul 1360 216 1055; Mul 1173 494 1077; Sub 1360 1360 1173; Mul 1173 215 1449;
  Mul 1183 497 1420; Add 1173 1173 1183; Add 1360 1360 1173; Sub 1360 1425 1360; Mul 1360 156 1360;
  Mul 1173 504 1360; Mul 1183 660 1279; Add 1173 1173 1183; Mul 1183 215 1458; Mul 1572 519 1420;
  Add 1183 1183 1572; Sub 1183 1183 1528; Mul 1183 156 1183; Mul 1572 541 1183; Mul 1690 827 1216;
  Add 1572 1572 1690; Sub 1173 1173 1572; Add 1681 1681 1173; Mul 1089 216 1089; Mul 1173 530 1077;
  Sub 1089 1089 1173; Mul 1395 215 1395; Mul 1173 513 1420; Add 1395 1395 1173; Sub 1089 1089 1395;
  Mul 1395 827 1055; Mul 1173 494 1183; Add 1395 1395 1173; Mul 1173 684 1449; Mul 1572 497 1092;
  Add 1173 1173 1572; Sub 1395 1395 1173; Add 1089 1089 1395; Mul 1395 508 1089; Mul 1173 656 1442;
  Add 1395 1395 1173; Mul 1154 216 1154; Mul 1173 481 1077; Sub 1154 1154 1173; Mul 1173 215 1696;
  Mul 1572 782 1420; Add 1173 1173 1572; Sub 1154 1154 1173; Mul 1173 684 1458; Mul 1572 519 1092;
  Add 1173 1173 1572; Mul 1055 660 1055; Mul 1572 494 1360; Add 1055 1055 1572; Sub 1173 1173 1055;
  Add 1154 1154 1173; Mul 1173 536 1154; Mul 1055 829 1187; Add 1173 1173 1055; Sub 1395 1395 1173;
  Mul 1696 216 1696; Mul 1173 782 1077; Sub 1696 1696 1173; Mul 1564 215 1564; Mul 1173 483 1420;
  Add 1564 1564 1173; Sub 1696 1696 1564; Mul 1449 660 1449; Mul 1564 497 1360; Add 1449 1449 1564;
  Mul 1458 827 1458; Mul 1564 519 1183; Add 1458 1458 1564; Sub 1449 1449 1458; Add 1696 1696 1449;
  Mul 1449 526 1696; Mul 1458 830 1177; Add 1449 1449 1458; Sub 1395 1395 1449; Add 1681 1681 1395;
  Mul 1395 411 1425; Mul 1393 716 1393; Add 1395 1395 1393; Add 1689 1689 1062; Sub 1395 1395 1689;
  Mul 1689 795 1400; Mul 1525 714 1525; Add 1689 1689 1525; Sub 1395 1395 1689].
Definition casadi_f0_442 : list instruction := [
  Mul 1689 416 1420; Mul 1378 215 1378; Add 1689 1689 1378; Sub 1052 1052 1689; Add 1395 1395 1052;
  Mul 1395 216 1395; Mul 1052 828 1077; Sub 1395 1395 1052; Mul 1052 302 1425; Mul 1441 716 1441;
  Add 1052 1052 1441; Mul 1441 448 1528; Mul 1647 718 1647; Add 1441 1441 1647; Sub 1052 1052 1441;
  Add 1593 1593 1087; Sub 1052 1052 1593; Mul 1409 216 1409; Mul 1593 414 1077; Sub 1409 1409 1593;
  Add 1111 1111 1244; Sub 1409 1409 1111; Add 1052 1052 1409; Mul 1052 215 1052; Mul 1409 832 1420;
  Add 1052 1052 1409; Sub 1409 1395 1052; Mul 1314 216 1314; Mul 1111 797 1077; Sub 1314 1314 1111;
  Add 1311 1311 1201; Sub 1314 1314 1311; Mul 1311 540 1314; Mul 1201 835 1115; Sub 1311 1311 1201;
  Mul 1201 415 1420; Mul 1457 215 1457; Add 1201 1201 1457; Sub 1491 1491 1201; Mul 1201 544 1491;
  Mul 1457 837 1232; Add 1201 1201 1457; Add 1311 1311 1201; Sub 1409 1409 1311; Add 1681 1681 1409;
  Mul 1681 1 1681; Mul 1409 632 1135; Add 1681 1681 1409; Add 1382 1382 1681; Mul 1092 678 1092;
  Mul 1681 684 1019; Add 1092 1092 1681; Mul 1183 673 1183; Mul 1681 827 1266; Add 1183 1183 1681;
  Mul 1360 799 1360; Mul 1681 660 1603; Add 1360 1360 1681; Add 1183 1183 1360; Add 1092 1092 1183;
  Mul 1696 602 1696; Mul 1183 830 1648; Add 1696 1696 1183; Mul 1154 670 1154; Mul 1183 829 1585;
  Add 1154 1154 1183; Mul 1089 671 1089; Mul 1183 656 1419; Add 1089 1089 1183; Sub 1154 1154 1089;
  Add 1696 1696 1154; Add 1092 1092 1696; Mul 1314 674 1314; Mul 1696 835 1252; Sub 1314 1314 1696;
  Mul 1491 680 1491; Mul 1696 837 1546; Add 1491 1491 1696; Mul 1118 216 1118; Mul 1696 403 1077;
  Sub 1118 1118 1696; Mul 1696 293 1420; Mul 1559 215 1559; Add 1696 1696 1559; Sub 1118 1118 1696;
  Mul 1118 676 1118; Mul 1696 839 1242; Add 1118 1118 1696; Sub 1491 1491 1118; Add 1314 1314 1491;
  Sub 1052 1052 1395; Add 1314 1314 1052; Add 1092 1092 1314; Mul 1092 2 1092; Mul 1314 834 1140;
  Add 1092 1092 1314; Add 1382 1382 1092; Mul 1092 647 1425; Mul 1200 716 1200; Add 1092 1092 1200;
  Mul 1200 695 1528; Mul 1190 718 1190; Add 1200 1200 1190; Sub 1092 1092 1200; Mul 1200 697 1400;
  Mul 1439 714 1439; Add 1200 1200 1439; Sub 1092 1092 1200; Add 1092 1092 1620; Mul 1092 3 1092;
  Mul 1620 836 1562; Add 1092 1092 1620; Add 1382 1382 1092; Mul 1092 802 1425; Mul 1620 716 1558;
  Add 1092 1092 1620; Mul 1620 813 1528; Mul 1200 718 1601; Add 1620 1620 1200; Sub 1092 1092 1620;
  Mul 1620 811 1400; Mul 1200 714 1206; Add 1620 1620 1200; Sub 1092 1092 1620; Add 1092 1092 1503;
  Mul 1092 4 1092; Mul 1503 702 1117; Add 1092 1092 1503; Add 1382 1382 1092; Mul 1092 788 1425;
  Mul 1503 716 1259; Add 1092 1092 1503; Mul 1503 822 1528; Mul 1620 718 1194; Add 1503 1503 1620;
  Sub 1092 1092 1503; Mul 1503 820 1400; Mul 1620 714 1167; Add 1503 1503 1620; Sub 1092 1092 1503;
  Add 1092 1092 1278; Mul 1092 5 1092; Mul 1278 810 1217; Add 1092 1092 1278; Add 1382 1382 1092;
  Add 1382 1382 1560; Mul 1560 769 1382; Sub 1483 1483 1560; Add 1578 1578 1483].
Definition casadi_f0_443 : list instruction := [
  Div 1483 1385 92; Mul 1560 1637 1126; Sub 1483 1483 1560; Mul 1560 815 1483; Mul 1092 640 1484;
  Mul 1445 725 1445; Add 1092 1092 1445; Mul 1445 662 1150; Mul 1047 731 1047; Add 1445 1445 1047;
  Add 1225 1225 1332; Add 1445 1445 1225; Add 1092 1092 1445; Mul 1445 580 1461; Mul 1412 310 1412;
  Add 1445 1445 1412; Mul 1412 59 1602; Mul 1581 327 1581; Add 1412 1412 1581; Add 1688 1688 1243;
  Add 1412 1412 1688; Add 1445 1445 1412; Sub 1092 1092 1445; Mul 1092 0 1092; Mul 1445 819 1470;
  Add 1092 1092 1445; Mul 1445 327 1362; Mul 1412 515 1602; Add 1445 1445 1412; Mul 1412 318 1481;
  Mul 1688 489 1195; Add 1412 1412 1688; Sub 1445 1445 1412; Sub 1445 1484 1445; Mul 1445 723 1445;
  Mul 1412 545 1445; Mul 1688 831 1145; Add 1412 1412 1688; Mul 1688 310 1481; Mul 1243 489 1461;
  Add 1688 1688 1243; Mul 1243 327 1325; Mul 1581 486 1602; Add 1243 1243 1581; Sub 1688 1688 1243;
  Sub 1688 1326 1688; Mul 1688 723 1688; Mul 1243 504 1688; Mul 1581 840 1279; Add 1243 1243 1581;
  Mul 1581 318 1325; Mul 1225 486 1195; Add 1581 1581 1225; Mul 1225 310 1362; Mul 1332 515 1461;
  Add 1225 1225 1332; Sub 1581 1581 1225; Sub 1581 1150 1581; Mul 1581 723 1581; Mul 1225 541 1581;
  Mul 1332 842 1216; Add 1225 1225 1332; Sub 1243 1243 1225; Add 1412 1412 1243; Mul 1243 842 1325;
  Mul 1225 486 1581; Add 1243 1243 1225; Mul 1225 831 1481; Mul 1332 489 1445; Add 1225 1225 1332;
  Sub 1243 1243 1225; Mul 1225 310 1193; Mul 1332 510 1461; Add 1225 1225 1332; Mul 1332 327 1396;
  Mul 1047 528 1602; Add 1332 1332 1047; Add 1225 1225 1332; Mul 1302 318 1302; Mul 1332 479 1195;
  Add 1302 1302 1332; Add 1225 1225 1302; Sub 1243 1243 1225; Mul 1225 508 1243; Mul 1302 841 1442;
  Add 1225 1225 1302; Mul 1302 831 1362; Mul 1332 515 1445; Add 1302 1302 1332; Mul 1325 840 1325;
  Mul 1332 486 1688; Add 1325 1325 1332; Sub 1302 1302 1325; Mul 1325 310 1285; Mul 1332 606 1461;
  Add 1325 1325 1332; Mul 1427 327 1427; Mul 1332 786 1602; Add 1427 1427 1332; Add 1325 1325 1427;
  Mul 1396 318 1396; Mul 1427 528 1195; Add 1396 1396 1427; Add 1325 1325 1396; Sub 1302 1302 1325;
  Mul 1325 536 1302; Mul 1396 844 1187; Add 1325 1325 1396; Sub 1225 1225 1325; Mul 1481 840 1481;
  Mul 1325 489 1688; Add 1481 1481 1325; Mul 1362 842 1362; Mul 1325 515 1581; Add 1362 1362 1325;
  Sub 1481 1481 1362; Mul 1573 310 1573; Mul 1362 705 1461; Add 1573 1573 1362; Mul 1285 327 1285;
  Mul 1362 606 1602; Add 1285 1285 1362; Add 1573 1573 1285; Mul 1193 318 1193; Mul 1285 510 1195;
  Add 1193 1193 1285; Add 1573 1573 1193; Sub 1481 1481 1573; Mul 1573 526 1481; Mul 1193 845 1177;
  Add 1573 1573 1193; Sub 1225 1225 1573; Add 1412 1412 1225; Add 1552 1552 1093; Mul 1093 800 1602;
  Mul 1207 327 1207; Add 1093 1093 1207; Mul 1207 643 1195; Mul 1438 318 1438; Add 1207 1207 1438;
  Add 1093 1093 1207; Add 1552 1552 1093; Mul 1093 540 1552; Mul 1207 843 1115; Sub 1093 1093 1207;
  Mul 1207 465 1461; Mul 1176 310 1176; Add 1207 1207 1176; Add 1589 1589 1018].
Definition casadi_f0_444 : list instruction := [
  Mul 1018 665 1195; Mul 1025 318 1025; Add 1018 1018 1025; Add 1589 1589 1018; Add 1207 1207 1589;
  Mul 1589 544 1207; Mul 1018 847 1232; Add 1589 1589 1018; Add 1093 1093 1589; Mul 1589 798 1484;
  Mul 1164 725 1164; Add 1589 1589 1164; Add 1478 1478 1509; Mul 1509 339 1326; Mul 1674 727 1674;
  Add 1509 1509 1674; Add 1478 1478 1509; Add 1589 1589 1478; Mul 1478 407 1461; Mul 1151 310 1151;
  Add 1478 1478 1151; Add 1627 1627 1544; Mul 1544 595 1195; Mul 1518 318 1518; Add 1544 1544 1518;
  Add 1627 1627 1544; Add 1478 1478 1627; Sub 1589 1589 1478; Mul 1589 216 1589; Mul 1478 848 1077;
  Sub 1589 1589 1478; Add 1473 1473 1185; Mul 1185 464 1150; Mul 1639 731 1639; Add 1185 1185 1639;
  Mul 1639 252 1326; Mul 1625 727 1625; Add 1639 1639 1625; Add 1185 1185 1639; Add 1473 1473 1185;
  Add 1094 1094 1504; Mul 1504 361 1602; Mul 1423 327 1423; Add 1504 1504 1423; Mul 1423 620 1195;
  Mul 1102 318 1102; Add 1423 1423 1102; Add 1504 1504 1423; Add 1094 1094 1504; Sub 1473 1473 1094;
  Mul 1473 215 1473; Mul 1094 850 1420; Add 1473 1473 1094; Sub 1094 1589 1473; Add 1093 1093 1094;
  Add 1412 1412 1093; Mul 1412 1 1412; Mul 1093 838 1135; Add 1412 1412 1093; Add 1092 1092 1412;
  Mul 1412 678 1445; Mul 1093 831 1019; Add 1412 1412 1093; Mul 1093 673 1581; Mul 1504 842 1266;
  Add 1093 1093 1504; Mul 1504 799 1688; Mul 1423 840 1603; Add 1504 1504 1423; Add 1093 1093 1504;
  Add 1412 1412 1093; Mul 1093 602 1481; Mul 1504 845 1648; Add 1093 1093 1504; Mul 1504 670 1302;
  Mul 1423 844 1585; Add 1504 1504 1423; Mul 1423 671 1243; Mul 1102 841 1419; Add 1423 1423 1102;
  Sub 1504 1504 1423; Add 1093 1093 1504; Add 1412 1412 1093; Mul 1093 785 1461; Mul 1188 310 1188;
  Add 1093 1093 1188; Mul 1188 306 1602; Mul 1662 327 1662; Add 1188 1188 1662; Add 1566 1566 1435;
  Add 1188 1188 1566; Add 1093 1093 1188; Mul 1188 676 1093; Mul 1566 853 1242; Add 1188 1188 1566;
  Mul 1566 680 1207; Mul 1435 847 1546; Add 1566 1566 1435; Sub 1188 1188 1566; Mul 1566 674 1552;
  Mul 1435 843 1252; Sub 1566 1566 1435; Sub 1188 1188 1566; Sub 1473 1473 1589; Add 1188 1188 1473;
  Add 1412 1412 1188; Mul 1412 2 1412; Mul 1188 846 1140; Add 1412 1412 1188; Add 1092 1092 1412;
  Mul 1445 717 1445; Mul 1412 831 1247; Add 1445 1445 1412; Mul 1688 787 1688; Mul 1412 840 1315;
  Add 1688 1688 1412; Mul 1581 713 1581; Mul 1412 842 1236; Add 1581 1581 1412; Sub 1688 1688 1581;
  Add 1445 1445 1688; Mul 1243 677 1243; Mul 1688 841 1261; Add 1243 1243 1688; Mul 1302 712 1302;
  Mul 1688 844 1353; Add 1302 1302 1688; Sub 1243 1243 1302; Mul 1481 706 1481; Mul 1302 845 1695;
  Add 1481 1481 1302; Sub 1243 1243 1481; Add 1445 1445 1243; Mul 1552 714 1552; Mul 1243 843 1400;
  Add 1552 1552 1243; Mul 1207 718 1207; Mul 1243 847 1528; Add 1207 1207 1243; Mul 1093 716 1093;
  Mul 1243 853 1425; Add 1093 1093 1243; Sub 1207 1207 1093; Add 1552 1552 1207; Add 1552 1552 1094;
  Add 1445 1445 1552; Mul 1445 3 1445; Mul 1552 854 1562; Add 1445 1445 1552].
Definition casadi_f0_445 : list instruction := [
  Add 1092 1092 1445; Mul 1445 811 1484; Mul 1206 725 1206; Add 1445 1445 1206; Mul 1206 813 1150;
  Mul 1601 731 1601; Add 1206 1206 1601; Mul 1601 802 1326; Mul 1558 727 1558; Add 1601 1601 1558;
  Add 1206 1206 1601; Add 1445 1445 1206; Mul 1206 807 1461; Mul 1540 310 1540; Add 1206 1206 1540;
  Mul 1540 690 1602; Mul 1671 327 1671; Add 1540 1540 1671; Mul 1671 720 1195; Mul 1227 318 1227;
  Add 1671 1671 1227; Add 1540 1540 1671; Add 1206 1206 1540; Sub 1445 1445 1206; Mul 1445 4 1445;
  Mul 1206 851 1117; Add 1445 1445 1206; Add 1092 1092 1445; Mul 1445 820 1484; Mul 1206 725 1167;
  Add 1445 1445 1206; Mul 1206 822 1150; Mul 1540 731 1194; Add 1206 1206 1540; Mul 1540 788 1326;
  Mul 1671 727 1259; Add 1540 1540 1671; Add 1206 1206 1540; Add 1445 1445 1206; Mul 1206 817 1461;
  Mul 1540 310 1224; Add 1206 1206 1540; Mul 1540 814 1602; Mul 1671 327 1577; Add 1540 1540 1671;
  Mul 1671 732 1195; Mul 1227 318 1424; Add 1671 1671 1227; Add 1540 1540 1671; Add 1206 1206 1540;
  Sub 1445 1445 1206; Mul 1445 5 1445; Mul 1206 852 1217; Add 1445 1445 1206; Add 1092 1092 1445;
  Sub 1170 1170 1092; Mul 1092 761 1170; Add 1560 1560 1092; Add 1578 1578 1560; Div 1560 1020 92;
  Mul 1092 1619 1126; Sub 1560 1560 1092; Mul 1092 833 1560; Mul 1445 645 1600; Mul 1488 736 1488;
  Add 1445 1445 1488; Mul 1488 666 1205; Mul 1022 741 1022; Add 1488 1488 1022; Add 1250 1250 1670;
  Add 1488 1488 1250; Add 1445 1445 1488; Mul 1488 593 1443; Mul 1036 358 1036; Add 1488 1488 1036;
  Mul 1036 36 1635; Mul 1235 372 1235; Add 1036 1036 1235; Add 1099 1099 1163; Add 1036 1036 1099;
  Add 1488 1488 1036; Sub 1445 1445 1488; Mul 1488 0 1445; Mul 1470 849 1470; Add 1488 1488 1470;
  Mul 1470 372 1574; Mul 1036 438 1635; Add 1470 1470 1036; Mul 1036 369 1104; Mul 1099 434 1456;
  Add 1036 1036 1099; Sub 1470 1470 1036; Sub 1470 1600 1470; Mul 1470 430 1470; Mul 1036 545 1470;
  Mul 1145 856 1145; Add 1036 1036 1145; Mul 1145 358 1104; Mul 1099 434 1443; Add 1145 1145 1099;
  Mul 1099 372 1535; Mul 1163 445 1635; Add 1099 1099 1163; Sub 1145 1145 1099; Sub 1145 1317 1145;
  Mul 1145 430 1145; Mul 1099 504 1145; Mul 1279 858 1279; Add 1099 1099 1279; Mul 1279 369 1535;
  Mul 1163 445 1456; Add 1279 1279 1163; Mul 1163 358 1574; Mul 1235 438 1443; Add 1163 1163 1235;
  Sub 1279 1279 1163; Sub 1279 1205 1279; Mul 1279 430 1279; Mul 1163 541 1279; Mul 1216 860 1216;
  Add 1163 1163 1216; Sub 1099 1099 1163; Add 1036 1036 1099; Mul 1099 860 1535; Mul 1163 445 1279;
  Add 1099 1099 1163; Mul 1163 856 1104; Mul 1216 434 1470; Add 1163 1163 1216; Sub 1099 1099 1163;
  Mul 1163 358 1687; Mul 1216 443 1443; Add 1163 1163 1216; Mul 1216 372 1354; Mul 1235 426 1635;
  Add 1216 1216 1235; Add 1163 1163 1216; Mul 1543 369 1543; Mul 1216 478 1456; Add 1543 1543 1216;
  Add 1163 1163 1543; Sub 1099 1099 1163; Mul 1163 508 1099; Mul 1442 859 1442; Add 1163 1163 1442;
  Mul 1442 856 1574; Mul 1543 438 1470; Add 1442 1442 1543; Mul 1535 858 1535].
Definition casadi_f0_446 : list instruction := [
  Mul 1543 445 1145; Add 1535 1535 1543; Sub 1442 1442 1535; Mul 1535 358 1643; Mul 1543 609 1443;
  Add 1535 1535 1543; Mul 1275 372 1275; Mul 1543 604 1635; Add 1275 1275 1543; Add 1535 1535 1275;
  Mul 1354 369 1354; Mul 1275 426 1456; Add 1354 1354 1275; Add 1535 1535 1354; Sub 1442 1442 1535;
  Mul 1535 536 1442; Mul 1187 862 1187; Add 1535 1535 1187; Sub 1163 1163 1535; Mul 1104 858 1104;
  Mul 1535 434 1145; Add 1104 1104 1535; Mul 1574 860 1574; Mul 1535 438 1279; Add 1574 1574 1535;
  Sub 1104 1104 1574; Mul 1574 13 1443; Mul 1296 358 1296; Sub 1574 1574 1296; Mul 1643 372 1643;
  Mul 1296 609 1635; Add 1643 1643 1296; Add 1574 1574 1643; Mul 1687 369 1687; Mul 1643 443 1456;
  Add 1687 1687 1643; Add 1574 1574 1687; Sub 1104 1104 1574; Mul 1574 526 1104; Mul 1177 863 1177;
  Add 1574 1574 1177; Sub 1163 1163 1574; Add 1036 1036 1163; Add 1699 1699 1230; Mul 1230 803 1635;
  Mul 1281 372 1281; Add 1230 1230 1281; Mul 1281 648 1456; Mul 1666 369 1666; Add 1281 1281 1666;
  Add 1230 1230 1281; Add 1699 1699 1230; Mul 1230 540 1699; Mul 1115 861 1115; Sub 1230 1230 1115;
  Mul 1115 394 1443; Mul 1301 358 1301; Add 1115 1115 1301; Add 1450 1450 1375; Mul 1375 669 1456;
  Mul 1169 369 1169; Add 1375 1375 1169; Add 1450 1450 1375; Add 1115 1115 1450; Mul 1450 544 1115;
  Mul 1232 865 1232; Add 1450 1450 1232; Add 1230 1230 1450; Mul 1450 801 1600; Mul 1475 736 1475;
  Add 1450 1450 1475; Add 1694 1694 1075; Mul 1075 355 1317; Mul 1513 738 1513; Add 1075 1075 1513;
  Add 1694 1694 1075; Add 1450 1450 1694; Mul 1694 359 1443; Mul 1318 358 1318; Add 1694 1694 1318;
  Add 1324 1324 1476; Mul 1476 608 1456; Mul 1351 369 1351; Add 1476 1476 1351; Add 1324 1324 1476;
  Add 1694 1694 1324; Sub 1450 1450 1694; Mul 1694 216 1450; Mul 1077 866 1077; Sub 1694 1694 1077;
  Add 1650 1650 1282; Mul 1282 457 1205; Mul 1545 741 1545; Add 1282 1282 1545; Mul 1545 234 1317;
  Mul 1628 738 1628; Add 1545 1545 1628; Add 1282 1282 1545; Add 1650 1650 1282; Add 1356 1356 1032;
  Mul 1032 352 1635; Mul 1679 372 1679; Add 1032 1032 1679; Mul 1679 622 1456; Mul 1147 369 1147;
  Add 1679 1679 1147; Add 1032 1032 1679; Add 1356 1356 1032; Sub 1650 1650 1356; Mul 1356 215 1650;
  Mul 1420 868 1420; Add 1356 1356 1420; Sub 1420 1694 1356; Add 1230 1230 1420; Add 1036 1036 1230;
  Mul 1036 1 1036; Mul 1135 857 1135; Add 1036 1036 1135; Add 1488 1488 1036; Mul 1036 678 1470;
  Mul 1019 856 1019; Add 1036 1036 1019; Mul 1019 673 1279; Mul 1266 860 1266; Add 1019 1019 1266;
  Mul 1266 799 1145; Mul 1603 858 1603; Add 1266 1266 1603; Add 1019 1019 1266; Add 1036 1036 1019;
  Mul 1019 602 1104; Mul 1648 863 1648; Add 1019 1019 1648; Mul 1648 670 1442; Mul 1585 862 1585;
  Add 1648 1648 1585; Mul 1585 671 1099; Mul 1419 859 1419; Add 1585 1585 1419; Sub 1648 1648 1585;
  Add 1019 1019 1648; Add 1036 1036 1019; Mul 1019 245 1443; Mul 1668 358 1668; Add 1019 1019 1668;
  Mul 1668 356 1635; Mul 1467 372 1467; Add 1668 1668 1467; Add 1076 1076 1460].
Definition casadi_f0_447 : list instruction := [
  Add 1668 1668 1076; Add 1019 1019 1668; Mul 1668 676 1019; Mul 1242 871 1242; Add 1668 1668 1242;
  Mul 1242 680 1115; Mul 1546 865 1546; Add 1242 1242 1546; Sub 1668 1668 1242; Mul 1242 674 1699;
  Mul 1252 861 1252; Sub 1242 1242 1252; Sub 1668 1668 1242; Sub 1356 1356 1694; Add 1668 1668 1356;
  Add 1036 1036 1668; Mul 1036 2 1036; Mul 1140 864 1140; Add 1036 1036 1140; Add 1488 1488 1036;
  Mul 1036 717 1470; Mul 1247 856 1247; Add 1036 1036 1247; Mul 1247 787 1145; Mul 1315 858 1315;
  Add 1247 1247 1315; Mul 1315 713 1279; Mul 1236 860 1236; Add 1315 1315 1236; Sub 1247 1247 1315;
  Add 1036 1036 1247; Mul 1247 677 1099; Mul 1261 859 1261; Add 1247 1247 1261; Mul 1261 712 1442;
  Mul 1353 862 1353; Add 1261 1261 1353; Sub 1247 1247 1261; Mul 1261 706 1104; Mul 1695 863 1695;
  Add 1261 1261 1695; Sub 1247 1247 1261; Add 1036 1036 1247; Mul 1247 714 1699; Mul 1400 861 1400;
  Add 1247 1247 1400; Mul 1400 718 1115; Mul 1528 865 1528; Add 1400 1400 1528; Mul 1528 716 1019;
  Mul 1425 871 1425; Add 1528 1528 1425; Sub 1400 1400 1528; Add 1247 1247 1400; Add 1247 1247 1420;
  Add 1036 1036 1247; Mul 1036 3 1036; Mul 1562 872 1562; Add 1036 1036 1562; Add 1488 1488 1036;
  Mul 1470 729 1470; Mul 1613 856 1613; Add 1470 1470 1613; Mul 1279 724 1279; Mul 1199 860 1199;
  Add 1279 1279 1199; Mul 1145 688 1145; Mul 1128 858 1128; Add 1145 1145 1128; Add 1279 1279 1145;
  Add 1470 1470 1279; Mul 1104 715 1104; Mul 1123 863 1123; Add 1104 1104 1123; Mul 1442 721 1442;
  Mul 1105 862 1105; Add 1442 1442 1105; Mul 1099 722 1099; Mul 1517 859 1517; Add 1099 1099 1517;
  Add 1442 1442 1099; Add 1104 1104 1442; Add 1470 1470 1104; Mul 1699 725 1699; Mul 1484 861 1484;
  Add 1699 1699 1484; Mul 1115 731 1115; Mul 1150 865 1150; Add 1115 1115 1150; Mul 1019 727 1019;
  Mul 1326 871 1326; Add 1019 1019 1326; Add 1115 1115 1019; Add 1699 1699 1115; Mul 1650 310 1650;
  Mul 1461 868 1461; Add 1650 1650 1461; Mul 1450 327 1450; Mul 1602 866 1602; Add 1450 1450 1602;
  Mul 1445 318 1445; Mul 1195 849 1195; Add 1445 1445 1195; Add 1450 1450 1445; Add 1650 1650 1450;
  Add 1699 1699 1650; Sub 1470 1470 1699; Mul 1470 4 1470; Mul 1117 869 1117; Add 1470 1470 1117;
  Add 1488 1488 1470; Mul 1600 820 1600; Mul 1167 736 1167; Add 1600 1600 1167; Mul 1205 822 1205;
  Mul 1194 741 1194; Add 1205 1205 1194; Mul 1317 788 1317; Mul 1259 738 1259; Add 1317 1317 1259;
  Add 1205 1205 1317; Add 1600 1600 1205; Mul 1443 817 1443; Mul 1224 358 1224; Add 1443 1443 1224;
  Mul 1635 814 1635; Mul 1577 372 1577; Add 1635 1635 1577; Mul 1456 732 1456; Mul 1424 369 1424;
  Add 1456 1456 1424; Add 1635 1635 1456; Add 1443 1443 1635; Sub 1600 1600 1443; Mul 1600 5 1600;
  Mul 1217 870 1217; Add 1600 1600 1217; Add 1488 1488 1600; Sub 1371 1371 1488; Mul 1488 754 1371;
  Add 1092 1092 1488; Add 1578 1578 1092; Mul 1092 210 1020; Mul 1488 200 1307; Add 1092 1092 1488;
  Mul 1035 19 1035; Mul 1488 196 1136; Sub 1035 1035 1488; Mul 1488 189 1410].
Definition casadi_f0_448 : list instruction := [
  Mul 1612 35 1612; Sub 1488 1488 1612; Sub 1035 1035 1488; Mul 1245 55 1245; Mul 1594 62 1594;
  Add 1245 1245 1594; Add 1035 1035 1245; Mul 1531 86 1531; Mul 1291 91 1291; Add 1531 1531 1291;
  Add 1531 1035 1531; Mul 1408 102 1408; Sub 1408 1531 1408; Mul 1291 777 1408; Mul 1245 209 1580;
  Add 1291 1291 1245; Add 1092 1092 1291; Mul 1291 778 1531; Mul 1245 867 1292; Add 1291 1291 1245;
  Add 1092 1092 1291; Mul 1291 769 1035; Mul 1245 855 1524; Add 1291 1291 1245; Add 1092 1092 1291;
  Mul 1291 761 1323; Mul 1245 201 1483; Add 1291 1291 1245; Sub 1092 1092 1291; Mul 1291 873 1560;
  Add 1092 1092 1291; Mul 1291 1006 1092; Mul 1245 210 1092; Mul 1594 756 1307; Add 1245 1245 1594;
  Sub 1020 1020 1245; Mul 1245 881 1020; Mul 1594 210 1678; Mul 1488 143 1307; Add 1594 1594 1488;
  Sub 1322 1322 1676; Sub 1246 1246 1174; Mul 1246 37 1246; Add 1322 1322 1246; Sub 1485 1485 1377;
  Mul 1485 80 1485; Add 1485 1322 1485; Sub 1514 1514 1636; Mul 1514 100 1514; Add 1514 1485 1514;
  Mul 1521 1064 1521; Mul 1655 1061 1655; Add 1521 1521 1655; Mul 1521 141 1521; Add 1514 1514 1521;
  Mul 1521 777 1514; Mul 1655 876 1580; Add 1521 1521 1655; Add 1594 1594 1521; Mul 1462 151 1462;
  Mul 1165 103 1165; Add 1462 1462 1165; Mul 1508 148 1508; Mul 1186 105 1186; Add 1508 1508 1186;
  Sub 1462 1462 1508; Sub 1462 1462 1485; Mul 1661 102 1661; Sub 1661 1462 1661; Mul 1485 778 1661;
  Mul 1508 153 1292; Add 1485 1485 1508; Sub 1594 1594 1485; Mul 1148 1057 1148; Mul 1240 1065 1240;
  Sub 1148 1148 1240; Mul 1148 156 1148; Add 1322 1322 1148; Mul 1490 86 1490; Mul 1592 91 1592;
  Sub 1490 1490 1592; Add 1490 1322 1490; Mul 1083 102 1083; Sub 1083 1490 1083; Mul 1592 769 1083;
  Mul 1148 171 1524; Add 1592 1592 1148; Add 1594 1594 1592; Mul 1410 180 1410; Mul 1591 35 1591;
  Add 1410 1410 1591; Mul 1026 19 1026; Mul 1136 182 1136; Sub 1026 1026 1136; Sub 1410 1410 1026;
  Mul 1290 55 1290; Add 1410 1410 1290; Mul 1265 86 1265; Mul 1168 91 1168; Add 1265 1265 1168;
  Add 1265 1410 1265; Mul 1498 102 1498; Sub 1498 1265 1498; Mul 1168 761 1498; Mul 1290 188 1483;
  Add 1168 1168 1290; Add 1594 1594 1168; Mul 1168 754 1408; Mul 1290 209 1560; Add 1168 1168 1290;
  Add 1594 1594 1168; Mul 1168 210 1594; Mul 1290 875 1307; Add 1168 1168 1290; Sub 1678 1678 1168;
  Div 1168 1678 65; Mul 1678 89 1678; Mul 1290 777 1594; Mul 1026 875 1580; Add 1290 1290 1026;
  Sub 1514 1514 1290; Mul 1290 58 1514; Add 1678 1678 1290; Mul 1290 778 1594; Mul 1026 875 1292;
  Add 1290 1290 1026; Add 1290 1661 1290; Mul 1026 45 1290; Add 1678 1678 1026; Mul 1026 769 1594;
  Mul 1136 875 1524; Add 1026 1026 1136; Sub 1026 1083 1026; Mul 1136 22 1026; Add 1678 1678 1136;
  Mul 1136 761 1594; Mul 1591 875 1483; Add 1136 1136 1591; Sub 1136 1498 1136; Mul 1591 879 1136;
  Add 1678 1678 1591; Mul 1591 754 1594; Mul 1592 875 1560; Add 1591 1591 1592; Sub 1591 1408 1591;
  Mul 1592 880 1591; Add 1678 1678 1592; Div 1678 1678 1045; Mul 1592 1078 1678].
Definition casadi_f0_449 : list instruction := [
  Sub 1168 1168 1592; Mul 1592 874 1168; Add 1245 1245 1592; Mul 1592 777 1092; Mul 1148 756 1580;
  Add 1592 1592 1148; Sub 1408 1408 1592; Mul 1592 884 1408; Div 1514 1514 65; Mul 1148 1029 1678;
  Sub 1514 1514 1148; Mul 1148 883 1514; Add 1592 1592 1148; Add 1245 1245 1592; Mul 1592 778 1092;
  Mul 1148 756 1292; Add 1592 1592 1148; Sub 1592 1592 1531; Mul 1148 886 1592; Div 1290 1290 65;
  Mul 1240 1063 1678; Sub 1290 1290 1240; Mul 1240 885 1290; Add 1148 1148 1240; Add 1245 1245 1148;
  Mul 1148 769 1092; Mul 1240 756 1524; Add 1148 1148 1240; Sub 1148 1035 1148; Mul 1240 888 1148;
  Div 1026 1026 65; Mul 1485 1040 1678; Sub 1026 1026 1485; Mul 1485 887 1026; Add 1240 1240 1485;
  Add 1245 1245 1240; Mul 1240 761 1092; Mul 1485 756 1483; Add 1240 1240 1485; Add 1240 1323 1240;
  Mul 1485 890 1240; Div 1136 1136 65; Mul 1508 1027 1678; Sub 1136 1136 1508; Mul 1508 889 1136;
  Add 1485 1485 1508; Sub 1245 1245 1485; Div 1591 1591 65; Mul 1485 1046 1678; Sub 1591 1591 1485;
  Mul 1485 891 1591; Mul 1092 754 1092; Mul 1508 756 1560; Add 1092 1092 1508; Mul 1508 892 1092;
  Sub 1485 1485 1508; Add 1245 1245 1485; Mul 1485 881 1245; Mul 1508 882 1168; Add 1485 1485 1508;
  Sub 1020 1020 1485; Mul 1485 884 1245; Mul 1508 882 1514; Add 1485 1485 1508; Sub 1408 1408 1485;
  Mul 1485 910 1408; Mul 1508 777 1661; Mul 1186 153 1580; Add 1508 1508 1186; Mul 1186 210 1158;
  Mul 1165 154 1307; Add 1186 1186 1165; Sub 1508 1508 1186; Mul 1186 778 1462; Mul 1165 106 1292;
  Add 1186 1186 1165; Add 1508 1508 1186; Mul 1186 769 1490; Mul 1165 877 1524; Add 1186 1186 1165;
  Sub 1508 1508 1186; Mul 1186 761 1265; Mul 1165 94 1483; Add 1186 1186 1165; Sub 1508 1508 1186;
  Mul 1186 754 1531; Mul 1165 867 1560; Add 1186 1186 1165; Sub 1508 1508 1186; Mul 1186 777 1508;
  Mul 1165 895 1580; Add 1186 1186 1165; Sub 1661 1661 1186; Mul 1186 884 1661; Mul 1165 896 1514;
  Add 1186 1186 1165; Mul 1165 210 1508; Mul 1521 895 1307; Add 1165 1165 1521; Add 1158 1158 1165;
  Mul 1165 881 1158; Mul 1521 898 1168; Add 1165 1165 1521; Sub 1186 1186 1165; Mul 1165 778 1508;
  Mul 1521 895 1292; Add 1165 1165 1521; Sub 1165 1165 1462; Mul 1462 886 1165; Mul 1521 899 1290;
  Add 1462 1462 1521; Add 1186 1186 1462; Mul 1462 769 1508; Mul 1521 895 1524; Add 1462 1462 1521;
  Add 1462 1490 1462; Mul 1521 888 1462; Mul 1655 900 1026; Add 1521 1521 1655; Sub 1186 1186 1521;
  Mul 1521 761 1508; Mul 1655 895 1483; Add 1521 1521 1655; Add 1521 1265 1521; Mul 1655 890 1521;
  Mul 1636 901 1136; Add 1655 1655 1636; Sub 1186 1186 1655; Mul 1655 754 1508; Mul 1636 895 1560;
  Add 1655 1655 1636; Add 1531 1531 1655; Mul 1655 892 1531; Mul 1636 902 1591; Add 1655 1655 1636;
  Sub 1186 1186 1655; Mul 1655 884 1186; Mul 1636 897 1514; Add 1655 1655 1636; Sub 1661 1661 1655;
  Div 1655 1661 905; Mul 1636 881 1186; Mul 1377 897 1168; Add 1636 1636 1377; Add 1158 1158 1636;
  Mul 1636 904 1158; Mul 1661 903 1661; Add 1636 1636 1661; Mul 1661 886 1186].
Definition casadi_f0_450 : list instruction := [
  Mul 1377 897 1290; Add 1661 1661 1377; Sub 1165 1165 1661; Mul 1661 906 1165; Add 1636 1636 1661;
  Mul 1661 888 1186; Mul 1377 897 1026; Add 1661 1661 1377; Add 1462 1462 1661; Mul 1661 907 1462;
  Add 1636 1636 1661; Mul 1661 890 1186; Mul 1377 897 1136; Add 1661 1661 1377; Add 1521 1521 1661;
  Mul 1661 908 1521; Add 1636 1636 1661; Mul 1661 892 1186; Mul 1377 897 1591; Add 1661 1661 1377;
  Add 1531 1531 1661; Mul 1661 909 1531; Add 1636 1636 1661; Div 1636 1636 1067; Mul 1661 1214 1636;
  Sub 1655 1655 1661; Mul 1661 894 1655; Add 1485 1485 1661; Mul 1661 912 1020; Div 1158 1158 905;
  Mul 1377 1614 1636; Sub 1158 1158 1377; Mul 1377 893 1158; Add 1661 1661 1377; Sub 1485 1485 1661;
  Mul 1661 886 1245; Mul 1377 882 1290; Add 1661 1661 1377; Sub 1592 1592 1661; Mul 1661 914 1592;
  Div 1165 1165 905; Mul 1377 1273 1636; Sub 1165 1165 1377; Mul 1377 913 1165; Add 1661 1661 1377;
  Add 1485 1485 1661; Mul 1661 888 1245; Mul 1377 882 1026; Add 1661 1661 1377; Sub 1148 1148 1661;
  Mul 1661 916 1148; Div 1462 1462 905; Mul 1377 1260 1636; Sub 1462 1462 1377; Mul 1377 915 1462;
  Add 1661 1661 1377; Sub 1485 1485 1661; Mul 1661 890 1245; Mul 1377 882 1136; Add 1661 1661 1377;
  Add 1240 1240 1661; Mul 1661 918 1240; Div 1521 1521 905; Mul 1377 1249 1636; Sub 1521 1521 1377;
  Mul 1377 917 1521; Add 1661 1661 1377; Add 1485 1485 1661; Div 1531 1531 905; Mul 1661 1569 1636;
  Sub 1531 1531 1661; Mul 1661 919 1531; Mul 1377 892 1245; Mul 1246 882 1591; Add 1377 1377 1246;
  Add 1092 1092 1377; Mul 1377 920 1092; Sub 1661 1661 1377; Sub 1485 1485 1661; Mul 1661 912 1485;
  Mul 1377 911 1158; Add 1661 1661 1377; Add 1020 1020 1661; Mul 1661 944 1020; Mul 1377 210 1028;
  Mul 1246 168 1307; Add 1377 1377 1246; Mul 1246 777 1083; Mul 1174 171 1580; Add 1246 1246 1174;
  Add 1377 1377 1246; Mul 1246 778 1490; Mul 1174 877 1292; Add 1246 1246 1174; Add 1377 1377 1246;
  Mul 1246 769 1322; Mul 1174 878 1524; Add 1246 1246 1174; Add 1377 1377 1246; Mul 1246 761 1410;
  Mul 1174 98 1483; Add 1246 1246 1174; Add 1377 1377 1246; Mul 1246 754 1035; Mul 1174 855 1560;
  Add 1246 1246 1174; Add 1377 1377 1246; Mul 1246 210 1377; Mul 1174 922 1307; Add 1246 1246 1174;
  Sub 1028 1028 1246; Mul 1246 881 1028; Mul 1174 923 1168; Add 1246 1246 1174; Mul 1174 777 1377;
  Mul 1676 922 1580; Add 1174 1174 1676; Sub 1083 1083 1174; Mul 1174 884 1083; Mul 1676 925 1514;
  Add 1174 1174 1676; Add 1246 1246 1174; Mul 1174 778 1377; Mul 1676 922 1292; Add 1174 1174 1676;
  Sub 1174 1174 1490; Mul 1490 886 1174; Mul 1676 926 1290; Add 1490 1490 1676; Add 1246 1246 1490;
  Mul 1490 769 1377; Mul 1676 922 1524; Add 1490 1490 1676; Sub 1322 1322 1490; Mul 1490 888 1322;
  Mul 1676 927 1026; Add 1490 1490 1676; Add 1246 1246 1490; Mul 1490 761 1377; Mul 1676 922 1483;
  Add 1490 1490 1676; Sub 1490 1410 1490; Mul 1676 890 1490; Mul 1488 928 1136; Add 1676 1676 1488;
  Add 1246 1246 1676; Mul 1676 754 1377; Mul 1488 922 1560; Add 1676 1676 1488].
Definition casadi_f0_451 : list instruction := [
  Sub 1035 1035 1676; Mul 1676 892 1035; Mul 1488 929 1591; Add 1676 1676 1488; Add 1246 1246 1676;
  Mul 1676 881 1246; Mul 1488 924 1168; Add 1676 1676 1488; Sub 1028 1028 1676; Mul 1676 884 1246;
  Mul 1488 924 1514; Add 1676 1676 1488; Sub 1083 1083 1676; Mul 1676 910 1083; Mul 1488 931 1655;
  Add 1676 1676 1488; Mul 1488 912 1028; Mul 1612 930 1158; Add 1488 1488 1612; Sub 1676 1676 1488;
  Mul 1488 886 1246; Mul 1612 924 1290; Add 1488 1488 1612; Sub 1174 1174 1488; Mul 1488 914 1174;
  Mul 1612 933 1165; Add 1488 1488 1612; Add 1676 1676 1488; Mul 1488 888 1246; Mul 1612 924 1026;
  Add 1488 1488 1612; Sub 1322 1322 1488; Mul 1488 916 1322; Mul 1612 934 1462; Add 1488 1488 1612;
  Sub 1676 1676 1488; Mul 1488 890 1246; Mul 1612 924 1136; Add 1488 1488 1612; Sub 1490 1490 1488;
  Mul 1488 918 1490; Mul 1612 935 1521; Add 1488 1488 1612; Sub 1676 1676 1488; Mul 1488 892 1246;
  Mul 1612 924 1591; Add 1488 1488 1612; Sub 1035 1035 1488; Mul 1488 920 1035; Mul 1612 936 1531;
  Add 1488 1488 1612; Sub 1676 1676 1488; Mul 1488 912 1676; Mul 1612 932 1158; Add 1488 1488 1612;
  Add 1028 1028 1488; Div 1488 1028 938; Mul 1028 937 1028; Mul 1612 910 1676; Mul 1600 932 1655;
  Add 1612 1612 1600; Sub 1083 1083 1612; Mul 1612 939 1083; Add 1028 1028 1612; Mul 1612 914 1676;
  Mul 1600 932 1165; Add 1612 1612 1600; Sub 1174 1174 1612; Mul 1612 940 1174; Add 1028 1028 1612;
  Mul 1612 916 1676; Mul 1600 932 1462; Add 1612 1612 1600; Add 1322 1322 1612; Mul 1612 941 1322;
  Add 1028 1028 1612; Mul 1612 918 1676; Mul 1600 932 1521; Add 1612 1612 1600; Add 1490 1490 1612;
  Mul 1612 942 1490; Add 1028 1028 1612; Mul 1612 920 1676; Mul 1600 932 1531; Add 1612 1612 1600;
  Add 1035 1035 1612; Mul 1612 943 1035; Add 1028 1028 1612; Div 1028 1028 1615; Mul 1612 1446 1028;
  Sub 1488 1488 1612; Mul 1612 921 1488; Add 1661 1661 1612; Mul 1612 910 1485; Mul 1600 911 1655;
  Add 1612 1612 1600; Sub 1408 1408 1612; Mul 1612 947 1408; Div 1083 1083 938; Mul 1600 1184 1028;
  Sub 1083 1083 1600; Mul 1600 946 1083; Add 1612 1612 1600; Add 1661 1661 1612; Mul 1612 914 1485;
  Mul 1600 911 1165; Add 1612 1612 1600; Sub 1592 1592 1612; Mul 1612 949 1592; Div 1174 1174 938;
  Mul 1600 1160 1028; Sub 1174 1174 1600; Mul 1600 948 1174; Add 1612 1612 1600; Add 1661 1661 1612;
  Mul 1612 916 1485; Mul 1600 911 1462; Add 1612 1612 1600; Add 1148 1148 1612; Mul 1612 951 1148;
  Div 1322 1322 938; Mul 1600 1328 1028; Sub 1322 1322 1600; Mul 1600 950 1322; Add 1612 1612 1600;
  Add 1661 1661 1612; Mul 1612 918 1485; Mul 1600 911 1521; Add 1612 1612 1600; Sub 1612 1612 1240;
  Mul 1240 953 1612; Div 1490 1490 938; Mul 1600 1155 1028; Sub 1490 1490 1600; Mul 1600 952 1490;
  Add 1240 1240 1600; Add 1661 1661 1240; Mul 1240 920 1485; Mul 1600 911 1531; Add 1240 1240 1600;
  Sub 1240 1240 1092; Mul 1092 955 1240; Div 1035 1035 938; Mul 1600 1220 1028; Sub 1035 1035 1600;
  Mul 1600 954 1035; Add 1092 1092 1600; Add 1661 1661 1092; Mul 1092 944 1661].
Definition casadi_f0_452 : list instruction := [
  Mul 1600 945 1488; Add 1092 1092 1600; Sub 1020 1020 1092; Mul 1092 986 1020; Mul 1600 210 1385;
  Mul 1217 175 1307; Add 1600 1600 1217; Mul 1217 777 1498; Mul 1443 188 1580; Add 1217 1217 1443;
  Add 1600 1600 1217; Mul 1217 778 1265; Mul 1443 94 1292; Add 1217 1217 1443; Add 1600 1600 1217;
  Mul 1217 769 1410; Mul 1443 98 1524; Add 1217 1217 1443; Add 1600 1600 1217; Mul 1217 761 1048;
  Mul 1443 172 1483; Add 1217 1217 1443; Sub 1600 1600 1217; Mul 1217 754 1323; Mul 1443 201 1560;
  Add 1217 1217 1443; Sub 1600 1600 1217; Mul 1217 210 1600; Mul 1307 957 1307; Add 1217 1217 1307;
  Sub 1385 1385 1217; Mul 1217 881 1385; Mul 1307 958 1168; Add 1217 1217 1307; Mul 1307 777 1600;
  Mul 1580 957 1580; Add 1307 1307 1580; Sub 1498 1498 1307; Mul 1307 884 1498; Mul 1580 960 1514;
  Add 1307 1307 1580; Add 1217 1217 1307; Mul 1307 778 1600; Mul 1292 957 1292; Add 1307 1307 1292;
  Sub 1307 1307 1265; Mul 1265 886 1307; Mul 1292 961 1290; Add 1265 1265 1292; Add 1217 1217 1265;
  Mul 1265 769 1600; Mul 1524 957 1524; Add 1265 1265 1524; Sub 1410 1410 1265; Mul 1265 888 1410;
  Mul 1524 962 1026; Add 1265 1265 1524; Add 1217 1217 1265; Mul 1265 761 1600; Mul 1483 957 1483;
  Add 1265 1265 1483; Add 1048 1048 1265; Mul 1265 890 1048; Mul 1483 963 1136; Add 1265 1265 1483;
  Sub 1217 1217 1265; Mul 1265 754 1600; Mul 1560 957 1560; Add 1265 1265 1560; Add 1323 1323 1265;
  Mul 1265 892 1323; Mul 1560 964 1591; Add 1265 1265 1560; Sub 1217 1217 1265; Mul 1265 881 1217;
  Mul 1560 959 1168; Add 1265 1265 1560; Sub 1385 1385 1265; Mul 1265 884 1217; Mul 1560 959 1514;
  Add 1265 1265 1560; Sub 1498 1498 1265; Mul 1265 910 1498; Mul 1560 966 1655; Add 1265 1265 1560;
  Mul 1560 912 1385; Mul 1483 965 1158; Add 1560 1560 1483; Sub 1265 1265 1560; Mul 1560 886 1217;
  Mul 1483 959 1290; Add 1560 1560 1483; Sub 1307 1307 1560; Mul 1560 914 1307; Mul 1483 968 1165;
  Add 1560 1560 1483; Add 1265 1265 1560; Mul 1560 888 1217; Mul 1483 959 1026; Add 1560 1560 1483;
  Sub 1410 1410 1560; Mul 1560 916 1410; Mul 1483 969 1462; Add 1560 1560 1483; Sub 1265 1265 1560;
  Mul 1560 890 1217; Mul 1483 959 1136; Add 1560 1560 1483; Add 1048 1048 1560; Mul 1560 918 1048;
  Mul 1483 970 1521; Add 1560 1560 1483; Add 1265 1265 1560; Mul 1560 892 1217; Mul 1483 959 1591;
  Add 1560 1560 1483; Add 1323 1323 1560; Mul 1560 920 1323; Mul 1483 971 1531; Add 1560 1560 1483;
  Add 1265 1265 1560; Mul 1560 912 1265; Mul 1483 967 1158; Add 1560 1560 1483; Add 1385 1385 1560;
  Mul 1560 944 1385; Mul 1483 972 1488; Add 1560 1560 1483; Mul 1483 910 1265; Mul 1524 967 1655;
  Add 1483 1483 1524; Sub 1498 1498 1483; Mul 1483 947 1498; Mul 1524 974 1083; Add 1483 1483 1524;
  Add 1560 1560 1483; Mul 1483 914 1265; Mul 1524 967 1165; Add 1483 1483 1524; Sub 1307 1307 1483;
  Mul 1483 949 1307; Mul 1524 975 1174; Add 1483 1483 1524; Add 1560 1560 1483; Mul 1483 916 1265;
  Mul 1524 967 1462; Add 1483 1483 1524; Add 1410 1410 1483; Mul 1483 951 1410].
Definition casadi_f0_453 : list instruction := [
  Mul 1524 976 1322; Add 1483 1483 1524; Add 1560 1560 1483; Mul 1483 918 1265; Mul 1524 967 1521;
  Add 1483 1483 1524; Sub 1483 1483 1048; Mul 1048 953 1483; Mul 1524 977 1490; Add 1048 1048 1524;
  Add 1560 1560 1048; Mul 1048 920 1265; Mul 1524 967 1531; Add 1048 1048 1524; Sub 1048 1048 1323;
  Mul 1323 955 1048; Mul 1524 978 1035; Add 1323 1323 1524; Add 1560 1560 1323; Mul 1323 944 1560;
  Mul 1524 973 1488; Add 1323 1323 1524; Sub 1385 1385 1323; Div 1323 1385 980; Mul 1385 979 1385;
  Mul 1524 947 1560; Mul 1292 973 1083; Add 1524 1524 1292; Sub 1498 1498 1524; Mul 1524 981 1498;
  Add 1385 1385 1524; Mul 1524 949 1560; Mul 1292 973 1174; Add 1524 1524 1292; Sub 1307 1307 1524;
  Mul 1524 982 1307; Add 1385 1385 1524; Mul 1524 951 1560; Mul 1292 973 1322; Add 1524 1524 1292;
  Sub 1410 1410 1524; Mul 1524 983 1410; Add 1385 1385 1524; Mul 1524 953 1560; Mul 1292 973 1490;
  Add 1524 1524 1292; Sub 1483 1483 1524; Mul 1524 984 1483; Add 1385 1385 1524; Mul 1524 955 1560;
  Mul 1292 973 1035; Add 1524 1524 1292; Sub 1048 1048 1524; Mul 1524 985 1048; Add 1385 1385 1524;
  Div 1385 1385 1630; Mul 1524 1629 1385; Sub 1323 1323 1524; Mul 1524 956 1323; Add 1092 1092 1524;
  Mul 1524 947 1661; Mul 1292 945 1083; Add 1524 1524 1292; Sub 1408 1408 1524; Mul 1524 989 1408;
  Div 1498 1498 980; Mul 1292 1262 1385; Sub 1498 1498 1292; Mul 1292 988 1498; Add 1524 1524 1292;
  Add 1092 1092 1524; Mul 1524 949 1661; Mul 1292 945 1174; Add 1524 1524 1292; Sub 1592 1592 1524;
  Mul 1524 991 1592; Div 1307 1307 980; Mul 1292 1306 1385; Sub 1307 1307 1292; Mul 1292 990 1307;
  Add 1524 1524 1292; Add 1092 1092 1524; Mul 1524 951 1661; Mul 1292 945 1322; Add 1524 1524 1292;
  Sub 1148 1148 1524; Mul 1524 993 1148; Div 1410 1410 980; Mul 1292 1626 1385; Sub 1410 1410 1292;
  Mul 1292 992 1410; Add 1524 1524 1292; Add 1092 1092 1524; Mul 1524 953 1661; Mul 1292 945 1490;
  Add 1524 1524 1292; Sub 1612 1612 1524; Mul 1524 995 1612; Div 1483 1483 980; Mul 1292 1530 1385;
  Sub 1483 1483 1292; Mul 1292 994 1483; Add 1524 1524 1292; Add 1092 1092 1524; Mul 1524 955 1661;
  Mul 1292 945 1035; Add 1524 1524 1292; Sub 1240 1240 1524; Mul 1524 997 1240; Div 1048 1048 980;
  Mul 1292 1472 1385; Sub 1048 1048 1292; Mul 1292 996 1048; Add 1524 1524 1292; Add 1092 1092 1524;
  Mul 1524 986 1092; Mul 1292 987 1323; Add 1524 1524 1292; Sub 1020 1020 1524; Div 1524 1020 999;
  Mul 1020 998 1020; Mul 1292 989 1092; Mul 1580 987 1498; Add 1292 1292 1580; Sub 1408 1408 1292;
  Mul 1292 1000 1408; Add 1020 1020 1292; Mul 1292 991 1092; Mul 1580 987 1307; Add 1292 1292 1580;
  Sub 1592 1592 1292; Mul 1292 1001 1592; Add 1020 1020 1292; Mul 1292 993 1092; Mul 1580 987 1410;
  Add 1292 1292 1580; Sub 1148 1148 1292; Mul 1292 1002 1148; Add 1020 1020 1292; Mul 1292 995 1092;
  Mul 1580 987 1483; Add 1292 1292 1580; Sub 1612 1612 1292; Mul 1292 1003 1612; Add 1020 1020 1292;
  Mul 1292 997 1092; Mul 1580 987 1048; Add 1292 1292 1580; Sub 1240 1240 1292].
Definition casadi_f0_454 : list instruction := [
  Mul 1292 1004 1240; Add 1020 1020 1292; Div 1020 1020 1095; Mul 1292 1596 1020; Sub 1524 1524 1292;
  Mul 1524 211 1524; Mul 1292 1005 1298; Sub 1524 1524 1292; Div 1408 1408 999; Mul 1292 1331 1020;
  Sub 1408 1408 1292; Mul 1408 779 1408; Mul 1292 1007 1284; Sub 1408 1408 1292; Add 1524 1524 1408;
  Div 1592 1592 999; Mul 1408 1080 1020; Sub 1592 1592 1408; Mul 1592 767 1592; Mul 1408 1008 1669;
  Add 1592 1592 1408; Add 1524 1524 1592; Div 1148 1148 999; Mul 1592 1056 1020; Sub 1148 1148 1592;
  Mul 1148 775 1148; Mul 1592 1009 1382; Sub 1148 1148 1592; Add 1524 1524 1148; Div 1612 1612 999;
  Mul 1148 1068 1020; Sub 1612 1612 1148; Mul 1612 815 1612; Mul 1148 1010 1170; Add 1612 1612 1148;
  Add 1524 1524 1612; Div 1240 1240 999; Mul 1612 1178 1020; Sub 1240 1240 1612; Mul 1240 833 1240;
  Mul 1612 1011 1371; Add 1240 1240 1612; Add 1524 1524 1240; Div 1524 1524 999; Mul 1020 1033 1020;
  Sub 1524 1524 1020; Mul 1020 756 1524; Add 1291 1291 1020; Sub 1578 1578 1291; Mul 1600 1012 1600;
  Mul 1323 211 1323; Mul 1291 986 1298; Sub 1323 1323 1291; Mul 1498 779 1498; Mul 1291 989 1284;
  Sub 1498 1498 1291; Add 1323 1323 1498; Mul 1307 767 1307; Mul 1498 991 1669; Add 1307 1307 1498;
  Add 1323 1323 1307; Mul 1410 775 1410; Mul 1307 993 1382; Sub 1410 1410 1307; Add 1323 1323 1410;
  Mul 1483 815 1483; Mul 1410 995 1170; Add 1483 1483 1410; Add 1323 1323 1483; Mul 1048 833 1048;
  Mul 1483 997 1371; Add 1048 1048 1483; Add 1323 1323 1048; Mul 1092 1006 1092; Mul 1048 987 1524;
  Add 1092 1092 1048; Sub 1323 1323 1092; Div 1323 1323 980; Mul 1385 1534 1385; Sub 1323 1323 1385;
  Mul 1385 957 1323; Add 1600 1600 1385; Sub 1578 1578 1600; Mul 1377 1013 1377; Mul 1488 211 1488;
  Mul 1600 944 1298; Sub 1488 1488 1600; Mul 1083 779 1083; Mul 1600 947 1284; Sub 1083 1083 1600;
  Add 1488 1488 1083; Mul 1174 767 1174; Mul 1083 949 1669; Add 1174 1174 1083; Add 1488 1488 1174;
  Mul 1322 775 1322; Mul 1174 951 1382; Sub 1322 1322 1174; Add 1488 1488 1322; Mul 1490 815 1490;
  Mul 1322 953 1170; Add 1490 1490 1322; Add 1488 1488 1490; Mul 1035 833 1035; Mul 1490 955 1371;
  Add 1035 1035 1490; Add 1488 1488 1035; Mul 1661 1006 1661; Mul 1035 945 1524; Add 1661 1661 1035;
  Sub 1488 1488 1661; Mul 1560 1012 1560; Mul 1661 973 1323; Add 1560 1560 1661; Sub 1488 1488 1560;
  Div 1488 1488 938; Mul 1028 1397 1028; Sub 1488 1488 1028; Mul 1028 922 1488; Add 1377 1377 1028;
  Sub 1578 1578 1377; Mul 1508 1014 1508; Mul 1655 779 1655; Mul 1377 910 1284; Sub 1655 1655 1377;
  Mul 1158 211 1158; Mul 1377 912 1298; Sub 1158 1158 1377; Sub 1655 1655 1158; Mul 1165 767 1165;
  Mul 1158 914 1669; Add 1165 1165 1158; Add 1655 1655 1165; Mul 1462 775 1462; Mul 1165 916 1382;
  Sub 1462 1462 1165; Sub 1655 1655 1462; Mul 1521 815 1521; Mul 1462 918 1170; Add 1521 1521 1462;
  Sub 1655 1655 1521; Mul 1531 833 1531; Mul 1521 920 1371; Add 1531 1531 1521; Sub 1655 1655 1531;
  Mul 1485 1006 1485; Mul 1531 911 1524; Add 1485 1485 1531; Sub 1655 1655 1485].
Definition casadi_f0_455 : list instruction := [
  Mul 1265 1012 1265; Mul 1485 967 1323; Add 1265 1265 1485; Sub 1655 1655 1265; Mul 1676 1013 1676;
  Mul 1265 932 1488; Add 1676 1676 1265; Sub 1655 1655 1676; Div 1655 1655 905; Mul 1636 1553 1636;
  Sub 1655 1655 1636; Mul 1636 895 1655; Add 1508 1508 1636; Sub 1578 1578 1508; Mul 1594 1015 1594;
  Mul 1168 211 1168; Mul 1298 881 1298; Sub 1168 1168 1298; Mul 1514 779 1514; Mul 1284 884 1284;
  Sub 1514 1514 1284; Add 1168 1168 1514; Mul 1290 767 1290; Mul 1669 886 1669; Add 1290 1290 1669;
  Add 1168 1168 1290; Mul 1026 775 1026; Mul 1382 888 1382; Sub 1026 1026 1382; Add 1168 1168 1026;
  Mul 1136 815 1136; Mul 1170 890 1170; Add 1136 1136 1170; Add 1168 1168 1136; Mul 1591 833 1591;
  Mul 1371 892 1371; Add 1591 1591 1371; Add 1168 1168 1591; Mul 1245 1006 1245; Mul 1591 882 1524;
  Add 1245 1245 1591; Sub 1168 1168 1245; Mul 1217 1012 1217; Mul 1245 959 1323; Add 1217 1217 1245;
  Sub 1168 1168 1217; Mul 1246 1013 1246; Mul 1217 924 1488; Add 1246 1246 1217; Sub 1168 1168 1246;
  Mul 1186 1014 1186; Mul 1246 897 1655; Add 1186 1186 1246; Sub 1168 1168 1186; Div 1168 1168 65;
  Mul 1678 1623 1678; Sub 1168 1168 1678; Mul 1678 875 1168; Add 1594 1594 1678; Sub 1578 1578 1594;
  Div 1578 1578 92; Mul 1126 759 1126; Sub 1578 1578 1126; Out 1 90 1578; Out 1 91 1168; Out 1 92 1655;
  Out 1 93 1488; Out 1 94 1323; Out 1 95 1524; Arg 1524 1 102; Out 1 96 1524; Arg 1323 1 103; Out 1 97 1323;
  Arg 1488 1 104; Out 1 98 1488; Arg 1655 1 105; Out 1 99 1655; Arg 1168 1 106; Out 1 100 1168; Arg 1578 1 107;
  Out 1 101 1578; Arg 1126 1 98; Mul 1594 8 1126; Mul 1678 10 1594; Arg 1186 1 101; Mul 1246 16 1186;
  Mul 1217 21 1246; Mul 1186 15 1186; Mul 1245 18 1186; Mul 1591 14 1246; Add 1245 1245 1591; Mul 1591 15 1245;
  Sub 1217 1217 1591; Mul 1591 18 1246; Mul 1371 14 1186; Sub 1591 1591 1371; Mul 1591 16 1591;
  Mul 1371 17 1186; Sub 1591 1591 1371; Sub 1371 1217 1591; Mul 1136 28 1186; Mul 1170 26 1246;
  Add 1136 1136 1170; Mul 1170 1031 1136; Mul 1026 28 1246; Mul 1382 26 1186; Sub 1026 1026 1382;
  Mul 1382 29 1026; Sub 1290 1170 1382; Mul 1290 20 1290; Add 1371 1371 1290; Mul 1382 20 1382;
  Add 1217 1217 1382; Add 1371 1371 1217; Mul 1170 20 1170; Add 1591 1591 1170; Add 1591 1591 1217;
  Add 1170 1371 1591; Mul 1591 19 1591; Arg 1382 1 100; Mul 1290 35 1382; Mul 1669 30 1290; Sub 1591 1591 1669;
  Mul 1382 19 1382; Mul 1669 41 1382; Mul 1514 42 1246; Mul 1284 40 1186; Sub 1514 1514 1284; Mul 1284 43 1246;
  Sub 1514 1514 1284; Mul 1284 44 1026; Add 1514 1514 1284; Mul 1284 35 1514; Add 1669 1669 1284;
  Sub 1591 1591 1669; Mul 1669 19 1591; Mul 1284 38 1290; Sub 1669 1669 1284; Mul 1514 19 1514;
  Mul 1284 41 1290; Sub 1514 1514 1284; Mul 1284 12 1382; Mul 1371 35 1371; Add 1284 1284 1371;
  Sub 1514 1514 1284; Mul 1284 35 1514; Mul 1371 46 1382; Add 1284 1284 1371; Sub 1669 1669 1284].
Definition casadi_f0_456 : list instruction := [
  Sub 1170 1170 1669; Sub 1170 1170 1217; Mul 1284 50 1136; Mul 1371 1039 1284; Mul 1298 50 1026;
  Mul 1508 19 1298; Mul 1636 49 1290; Sub 1508 1508 1636; Mul 1636 51 1382; Sub 1508 1508 1636;
  Mul 1636 1041 1508; Sub 1676 1371 1636; Mul 1676 37 1676; Add 1170 1170 1676; Mul 1676 49 1382;
  Mul 1265 35 1298; Add 1676 1676 1265; Mul 1265 51 1290; Sub 1676 1676 1265; Mul 1265 64 1676;
  Add 1636 1265 1636; Mul 1636 37 1636; Add 1636 1217 1636; Add 1170 1170 1636; Mul 1485 43 1186;
  Mul 1531 42 1186; Mul 1521 40 1246; Add 1531 1531 1521; Sub 1485 1485 1531; Mul 1531 44 1136;
  Sub 1485 1485 1531; Mul 1531 67 1485; Mul 1521 19 1531; Mul 1462 71 1290; Sub 1521 1521 1462;
  Mul 1462 75 1382; Mul 1245 16 1245; Mul 1165 21 1186; Add 1245 1245 1165; Mul 1136 74 1136; Mul 1026 20 1026;
  Mul 1026 34 1026; Sub 1136 1136 1026; Add 1245 1245 1136; Add 1136 1245 1245; Mul 1026 35 1136;
  Sub 1462 1462 1026; Add 1521 1521 1462; Mul 1462 73 1382; Mul 1026 35 1245; Sub 1462 1462 1026;
  Mul 1026 19 1485; Mul 1165 70 1290; Sub 1026 1026 1165; Add 1462 1462 1026; Sub 1521 1521 1462;
  Mul 1462 76 1284; Mul 1026 37 1676; Mul 1165 57 1026; Sub 1462 1462 1165; Sub 1521 1521 1462;
  Mul 1462 67 1521; Mul 1462 66 1462; Arg 1165 1 99; Mul 1158 53 1165; Mul 1377 77 1158; Sub 1462 1462 1377;
  Mul 1165 66 1165; Mul 1377 11 1165; Mul 1028 53 1170; Add 1377 1377 1028; Sub 1462 1462 1377;
  Mul 1377 53 1462; Mul 1028 78 1165; Add 1377 1377 1028; Add 1170 1170 1377; Sub 1170 1170 1636;
  Mul 1028 87 1158; Mul 1560 83 1284; Mul 1661 66 1560; Add 1028 1028 1661; Mul 1661 88 1165; Mul 1676 83 1676;
  Mul 1035 53 1676; Add 1661 1661 1035; Add 1028 1028 1661; Mul 1661 1054 1028; Mul 1035 83 1508;
  Mul 1490 1058 1035; Sub 1322 1661 1490; Mul 1322 80 1322; Add 1170 1170 1322; Add 1636 1636 1377;
  Mul 1377 66 1676; Mul 1322 88 1158; Sub 1377 1377 1322; Mul 1322 87 1165; Mul 1174 53 1560;
  Sub 1322 1322 1174; Add 1377 1377 1322; Mul 1322 93 1377; Add 1490 1322 1490; Mul 1490 80 1490;
  Add 1636 1636 1490; Add 1170 1170 1636; Mul 1490 9 1170; Add 1678 1678 1490; Mul 1462 66 1462;
  Mul 1490 78 1158; Sub 1462 1462 1490; Sub 1462 1462 1521; Mul 1521 72 1028; Mul 1490 80 1377;
  Mul 1174 63 1490; Sub 1521 1521 1174; Sub 1462 1462 1521; Mul 1521 67 1462; Mul 1521 8 1521; Mul 1126 9 1126;
  Mul 1174 97 1126; Sub 1521 1521 1174; Add 1678 1678 1521; Mul 1521 9 1678; Mul 1174 84 1594;
  Add 1521 1521 1174; Sub 1174 1521 1636; Mul 1377 104 1377; Mul 1083 8 1377; Mul 1600 103 1126;
  Sub 1083 1083 1600; Mul 1600 105 1594; Mul 1385 104 1028; Mul 1092 9 1385; Sub 1600 1600 1092;
  Sub 1083 1083 1600; Mul 1600 33 1083; Mul 1092 104 1035; Mul 1048 1066 1092; Add 1483 1600 1048;
  Mul 1483 100 1483; Sub 1174 1174 1483; Mul 1678 8 1678; Mul 1483 84 1126; Sub 1678 1678 1483;
  Sub 1678 1678 1462; Mul 1462 103 1594; Mul 1483 9 1377; Add 1462 1462 1483; Mul 1483 105 1126].
Definition casadi_f0_457 : list instruction := [
  Mul 1410 8 1385; Add 1483 1483 1410; Sub 1462 1462 1483; Mul 1483 96 1462; Mul 1410 100 1083;
  Mul 1307 117 1410; Sub 1483 1483 1307; Add 1678 1678 1483; Mul 1678 67 1678; Mul 1678 114 1678; Arg 1483 1 97;
  Mul 1307 113 1483; Mul 1498 116 1307; Sub 1678 1678 1498; Mul 1483 114 1483; Mul 1498 119 1483;
  Sub 1170 1170 1521; Sub 1170 1170 1636; Mul 1636 1044 1462; Sub 1048 1636 1048; Mul 1048 100 1048;
  Add 1170 1170 1048; Sub 1170 1170 1174; Mul 1170 113 1170; Add 1498 1498 1170; Sub 1678 1678 1498;
  Mul 1678 113 1678; Mul 1498 118 1483; Add 1678 1678 1498; Sub 1174 1174 1678; Mul 1083 120 1083;
  Mul 1678 114 1083; Mul 1498 60 1307; Sub 1678 1678 1498; Mul 1498 121 1483; Mul 1170 120 1462;
  Mul 1048 113 1170; Add 1498 1498 1048; Add 1678 1678 1498; Mul 1498 112 1678; Mul 1048 120 1092;
  Mul 1521 123 1048; Add 1498 1498 1521; Mul 1498 99 1498; Sub 1174 1174 1498; Mul 1678 125 1678;
  Mul 1678 110 1678; Mul 1498 125 1048; Mul 1498 126 1498; Add 1678 1678 1498; Mul 1678 122 1678;
  Add 1174 1174 1678; Div 1678 1174 92; Mul 1174 6 1174; Mul 1498 130 1594; Mul 1514 19 1514; Mul 1521 46 1290;
  Sub 1514 1514 1521; Mul 1591 35 1591; Mul 1521 38 1382; Add 1591 1591 1521; Add 1514 1514 1591;
  Mul 1026 52 1026; Mul 1591 76 1508; Add 1026 1026 1591; Add 1514 1514 1026; Mul 1026 66 1514;
  Mul 1591 129 1158; Sub 1026 1026 1591; Mul 1591 132 1165; Mul 1521 70 1382; Mul 1291 35 1485;
  Add 1521 1521 1291; Mul 1291 73 1290; Mul 1020 19 1245; Add 1291 1291 1020; Add 1521 1521 1291;
  Mul 1136 19 1136; Mul 1291 75 1290; Add 1136 1136 1291; Mul 1531 35 1531; Mul 1291 71 1382;
  Add 1531 1531 1291; Add 1136 1136 1531; Sub 1521 1521 1136; Mul 1136 133 1284; Mul 1508 37 1508;
  Mul 1508 57 1508; Sub 1136 1136 1508; Sub 1521 1521 1136; Mul 1136 53 1521; Add 1591 1591 1136;
  Add 1026 1026 1591; Mul 1490 27 1490; Mul 1591 72 1035; Add 1490 1490 1591; Add 1026 1026 1490;
  Mul 1490 9 1026; Add 1498 1498 1490; Add 1490 1521 1521; Mul 1490 66 1490; Mul 1591 136 1158;
  Sub 1490 1490 1591; Mul 1591 129 1165; Mul 1136 53 1514; Add 1591 1591 1136; Sub 1490 1490 1591;
  Mul 1591 66 1521; Mul 1136 132 1158; Sub 1591 1591 1136; Sub 1490 1490 1591; Mul 1028 138 1028;
  Mul 1591 80 1035; Mul 1591 63 1591; Sub 1028 1028 1591; Sub 1490 1490 1028; Add 1028 1490 1490;
  Mul 1028 8 1028; Mul 1591 139 1126; Sub 1028 1028 1591; Add 1498 1498 1028; Mul 1028 8 1490;
  Mul 1591 137 1126; Sub 1028 1028 1591; Sub 1498 1498 1028; Mul 1462 140 1462; Mul 1028 100 1092;
  Mul 1028 117 1028; Sub 1462 1462 1028; Add 1498 1498 1462; Mul 1462 141 1048; Mul 1462 121 1462;
  Mul 1028 142 1170; Add 1462 1462 1028; Sub 1498 1498 1462; Mul 1498 114 1498; Mul 1462 134 1307;
  Sub 1498 1498 1462; Mul 1462 145 1483; Mul 1028 8 1026; Mul 1591 130 1126; Sub 1028 1028 1591;
  Mul 1591 137 1594; Mul 1136 9 1490; Add 1591 1591 1136; Sub 1028 1028 1591; Mul 1410 111 1410;
  Mul 1591 96 1092; Add 1410 1410 1591].
Definition casadi_f0_458 : list instruction := [
  Add 1028 1028 1410; Mul 1410 141 1083; Mul 1410 124 1410; Mul 1048 146 1048; Add 1410 1410 1048;
  Sub 1028 1028 1410; Mul 1028 113 1028; Add 1462 1462 1028; Sub 1498 1498 1462; Mul 1462 1073 1498;
  Add 1174 1174 1462; Mul 1462 150 1483; Mul 1028 149 1594; Mul 1410 148 1092; Mul 1048 147 1385;
  Mul 1591 109 1048; Sub 1410 1410 1591; Add 1490 1490 1410; Mul 1410 9 1490; Add 1028 1028 1410;
  Mul 1092 151 1092; Mul 1410 147 1377; Mul 1591 109 1410; Add 1092 1092 1591; Add 1026 1026 1092;
  Mul 1092 8 1026; Mul 1591 152 1126; Sub 1092 1092 1591; Sub 1028 1028 1092; Mul 1092 148 1594;
  Mul 1591 9 1048; Sub 1092 1092 1591; Mul 1591 8 1410; Mul 1136 151 1126; Sub 1591 1591 1136;
  Sub 1092 1092 1591; Mul 1591 108 1092; Add 1028 1028 1591; Mul 1028 113 1028; Add 1462 1462 1028;
  Mul 1028 152 1594; Mul 1026 9 1026; Add 1028 1028 1026; Mul 1490 8 1490; Mul 1026 149 1126;
  Sub 1490 1490 1026; Add 1028 1028 1490; Mul 1490 151 1594; Mul 1026 9 1410; Add 1490 1490 1026;
  Mul 1026 148 1126; Mul 1591 8 1048; Add 1026 1026 1591; Sub 1490 1490 1026; Mul 1490 108 1490;
  Add 1028 1028 1490; Mul 1028 114 1028; Mul 1490 155 1307; Sub 1028 1028 1490; Add 1462 1462 1028;
  Mul 1028 1050 1462; Add 1174 1174 1028; Mul 1028 159 1594; Mul 1490 156 1676; Mul 1490 82 1490;
  Mul 1026 157 1035; Add 1490 1490 1026; Sub 1514 1514 1490; Mul 1490 66 1514; Mul 1026 158 1158;
  Sub 1490 1490 1026; Mul 1026 161 1165; Mul 1035 156 1035; Mul 1035 87 1035; Mul 1591 160 1560;
  Sub 1035 1035 1591; Sub 1521 1521 1035; Mul 1035 53 1521; Add 1026 1026 1035; Add 1490 1490 1026;
  Mul 1026 9 1490; Add 1028 1028 1026; Mul 1521 66 1521; Mul 1026 161 1158; Sub 1521 1521 1026;
  Mul 1026 158 1165; Mul 1514 53 1514; Add 1026 1026 1514; Sub 1521 1521 1026; Mul 1026 8 1521;
  Mul 1514 163 1126; Sub 1026 1026 1514; Add 1028 1028 1026; Mul 1026 167 1165; Mul 1514 166 1676;
  Mul 1035 53 1514; Add 1026 1026 1035; Mul 1035 164 1158; Mul 1591 156 1560; Mul 1136 66 1591;
  Add 1035 1035 1136; Sub 1026 1026 1035; Mul 1035 8 1026; Mul 1136 165 1126; Sub 1035 1035 1136;
  Mul 1136 169 1594; Mul 1514 66 1514; Mul 1508 167 1158; Sub 1514 1514 1508; Mul 1508 164 1165;
  Mul 1591 53 1591; Sub 1508 1508 1591; Sub 1514 1514 1508; Mul 1508 9 1514; Add 1136 1136 1508;
  Sub 1035 1035 1136; Mul 1035 108 1035; Sub 1028 1028 1035; Mul 1028 114 1028; Mul 1035 162 1307;
  Sub 1028 1028 1035; Mul 1035 170 1483; Mul 1490 8 1490; Mul 1136 159 1126; Sub 1490 1490 1136;
  Mul 1136 163 1594; Mul 1521 9 1521; Add 1136 1136 1521; Sub 1490 1490 1136; Mul 1136 165 1594;
  Mul 1521 9 1026; Add 1136 1136 1521; Mul 1521 8 1514; Mul 1508 169 1126; Sub 1521 1521 1508;
  Add 1136 1136 1521; Mul 1521 108 1136; Add 1490 1490 1521; Mul 1490 113 1490; Add 1035 1035 1490;
  Sub 1028 1028 1035; Mul 1035 1070 1028; Add 1174 1174 1035; Mul 1035 179 1594; Mul 1490 177 1165;
  Mul 1521 174 1298; Mul 1298 173 1298; Mul 1508 49 1298; Add 1521 1521 1508].
Definition casadi_f0_459 : list instruction := [
  Add 1521 1521 1217; Mul 1508 174 1382; Mul 1591 35 1298; Add 1508 1508 1591; Mul 1591 176 1290;
  Sub 1508 1508 1591; Mul 1591 62 1508; Mul 1531 176 1382; Mul 1291 19 1298; Mul 1020 174 1290;
  Sub 1291 1291 1020; Sub 1531 1531 1291; Mul 1291 48 1531; Sub 1591 1591 1291; Add 1591 1521 1591;
  Mul 1291 53 1591; Add 1490 1490 1291; Mul 1291 176 1284; Sub 1485 1485 1291; Mul 1291 19 1485;
  Mul 1020 180 1290; Sub 1291 1291 1020; Mul 1020 182 1382; Mul 1298 56 1298; Mul 1284 174 1284;
  Sub 1298 1298 1284; Sub 1298 1298 1245; Mul 1245 35 1298; Add 1020 1020 1245; Add 1291 1291 1020;
  Mul 1020 55 1508; Add 1291 1291 1020; Mul 1020 66 1291; Mul 1245 181 1158; Sub 1020 1020 1245;
  Sub 1490 1490 1020; Mul 1020 86 1508; Sub 1490 1490 1020; Mul 1020 9 1490; Add 1035 1035 1020;
  Mul 1020 181 1165; Mul 1291 53 1291; Add 1020 1020 1291; Mul 1591 66 1591; Mul 1291 177 1158;
  Sub 1591 1591 1291; Add 1020 1020 1591; Mul 1591 91 1508; Add 1020 1020 1591; Mul 1591 8 1020;
  Mul 1291 184 1126; Sub 1591 1591 1291; Add 1035 1035 1591; Mul 1508 102 1508; Mul 1591 66 1531;
  Mul 1291 178 1158; Sub 1591 1591 1291; Mul 1291 8 1591; Mul 1245 185 1126; Sub 1291 1291 1245;
  Mul 1245 187 1594; Mul 1284 178 1165; Mul 1240 53 1531; Add 1284 1284 1240; Mul 1240 9 1284;
  Add 1245 1245 1240; Add 1291 1291 1245; Mul 1291 108 1291; Sub 1508 1508 1291; Add 1035 1035 1508;
  Mul 1035 114 1035; Mul 1508 183 1307; Sub 1035 1035 1508; Mul 1508 186 1483; Mul 1490 8 1490;
  Mul 1291 179 1126; Sub 1490 1490 1291; Mul 1291 184 1594; Mul 1020 9 1020; Add 1291 1291 1020;
  Sub 1490 1490 1291; Mul 1291 185 1594; Mul 1020 9 1591; Add 1291 1291 1020; Mul 1020 8 1284;
  Mul 1245 187 1126; Sub 1020 1020 1245; Sub 1291 1291 1020; Mul 1020 108 1291; Add 1490 1490 1020;
  Mul 1490 113 1490; Add 1508 1508 1490; Sub 1035 1035 1508; Mul 1508 1059 1035; Add 1174 1174 1508;
  Mul 1508 199 1594; Mul 1490 196 1382; Mul 1020 197 1246; Mul 1245 195 1186; Sub 1020 1020 1245;
  Mul 1245 190 1186; Mul 1240 192 1246; Add 1245 1245 1240; Mul 1240 198 1245; Add 1020 1020 1240;
  Mul 1240 35 1020; Add 1490 1490 1240; Mul 1240 189 1290; Mul 1612 25 1245; Mul 1148 190 1246;
  Mul 1592 192 1186; Sub 1148 1148 1592; Mul 1592 32 1148; Add 1612 1612 1592; Mul 1592 19 1612;
  Add 1240 1240 1592; Sub 1490 1490 1240; Mul 1240 48 1245; Mul 1592 19 1148; Mul 1408 194 1290;
  Sub 1592 1592 1408; Mul 1408 55 1592; Add 1240 1240 1408; Sub 1490 1490 1240; Mul 1240 66 1490;
  Mul 1408 193 1158; Sub 1240 1240 1408; Mul 1408 202 1165; Mul 1292 198 1148; Mul 1580 197 1186;
  Mul 1443 195 1246; Add 1580 1580 1443; Sub 1292 1292 1580; Mul 1580 62 1592; Mul 1443 194 1382;
  Mul 1148 35 1148; Add 1443 1443 1148; Mul 1148 48 1443; Sub 1580 1580 1148; Add 1580 1292 1580;
  Mul 1148 53 1580; Add 1408 1408 1148; Add 1240 1240 1408; Mul 1408 86 1592; Sub 1240 1240 1408;
  Mul 1408 9 1240; Add 1508 1508 1408; Mul 1580 66 1580; Mul 1408 202 1158].
Definition casadi_f0_460 : list instruction := [
  Sub 1580 1580 1408; Mul 1408 193 1165; Mul 1490 53 1490; Add 1408 1408 1490; Sub 1580 1580 1408;
  Mul 1408 91 1592; Add 1580 1580 1408; Mul 1408 8 1580; Mul 1490 205 1126; Sub 1408 1408 1490;
  Add 1508 1508 1408; Mul 1592 102 1592; Mul 1408 66 1443; Mul 1490 203 1158; Sub 1408 1408 1490;
  Mul 1490 191 1165; Mul 1148 53 1245; Sub 1490 1490 1148; Add 1408 1408 1490; Mul 1490 8 1408;
  Mul 1148 206 1126; Sub 1490 1490 1148; Mul 1148 208 1594; Mul 1635 191 1158; Mul 1456 66 1245;
  Add 1635 1635 1456; Mul 1456 203 1165; Mul 1424 53 1443; Add 1456 1456 1424; Add 1635 1635 1456;
  Mul 1456 9 1635; Sub 1148 1148 1456; Sub 1490 1490 1148; Mul 1490 108 1490; Sub 1592 1592 1490;
  Add 1508 1508 1592; Mul 1508 114 1508; Mul 1592 204 1307; Sub 1508 1508 1592; Mul 1592 207 1483;
  Mul 1240 8 1240; Mul 1490 199 1126; Sub 1240 1240 1490; Mul 1490 205 1594; Mul 1580 9 1580;
  Add 1490 1490 1580; Sub 1240 1240 1490; Mul 1490 206 1594; Mul 1580 9 1408; Add 1490 1490 1580;
  Mul 1580 208 1126; Mul 1148 8 1635; Add 1580 1580 1148; Sub 1490 1490 1580; Mul 1580 108 1490;
  Add 1240 1240 1580; Mul 1240 113 1240; Add 1592 1592 1240; Sub 1508 1508 1592; Mul 1592 1043 1508;
  Add 1174 1174 1592; Div 1174 1174 1085; Mul 1592 1072 1174; Sub 1678 1678 1592; Mul 1592 211 1678;
  Mul 1240 216 1483; Arg 1580 1 96; Mul 1148 215 1580; Mul 1456 113 1148; Sub 1240 1240 1456; Mul 1456 218 1240;
  Mul 1424 114 1524; Mul 1577 0 1307; Sub 1424 1424 1577; Mul 1577 217 1424; Add 1456 1456 1577;
  Mul 1580 216 1580; Mul 1577 1 1580; Mul 1224 215 1323; Add 1577 1577 1224; Sub 1456 1456 1577;
  Mul 1577 0 1483; Mul 1224 113 1524; Add 1577 1577 1224; Mul 1224 220 1577; Mul 1205 114 1148;
  Mul 1317 216 1307; Add 1205 1205 1317; Mul 1317 221 1205; Sub 1224 1224 1317; Sub 1456 1456 1224;
  Mul 1224 214 1456; Mul 1317 213 1224; Mul 1317 212 1317; Mul 1259 225 1317; Mul 1194 114 1580;
  Mul 1167 215 1307; Sub 1194 1194 1167; Mul 1167 101 1194; Mul 1470 107 1148; Sub 1167 1167 1470;
  Mul 1470 223 1167; Add 1117 1259 1470; Mul 1699 216 1323; Mul 1650 1 1148; Sub 1699 1699 1650;
  Mul 1650 113 1580; Mul 1450 215 1483; Add 1650 1650 1450; Mul 1450 218 1650; Mul 1445 228 1424;
  Add 1450 1450 1445; Add 1699 1699 1450; Mul 1450 221 1194; Mul 1445 224 1577; Add 1450 1450 1445;
  Sub 1699 1699 1450; Mul 1450 214 1699; Mul 1445 213 1450; Mul 1445 212 1445; Mul 1195 231 1445;
  Mul 1602 101 1205; Mul 1461 107 1580; Add 1602 1602 1461; Mul 1461 230 1602; Sub 1195 1195 1461;
  Sub 1461 1117 1195; Add 1470 1470 1259; Sub 1195 1470 1195; Add 1259 1461 1195; Mul 1115 144 1483;
  Mul 1019 215 1115; Mul 1326 240 1580; Add 1019 1019 1326; Mul 1326 236 1307; Mul 1150 238 1483;
  Add 1326 1326 1150; Mul 1150 220 1326; Mul 1484 237 1205; Add 1150 1150 1484; Sub 1019 1019 1150;
  Mul 1150 115 1148; Add 1019 1019 1150; Mul 1150 212 1602; Mul 1484 242 1150; Mul 1104 101 1483;
  Mul 1442 241 1104; Add 1484 1484 1442; Add 1484 1019 1484].
Definition casadi_f0_461 : list instruction := [
  Mul 1442 244 1484; Mul 1099 213 1699; Mul 1517 243 1099; Add 1105 1442 1517; Mul 1123 237 1194;
  Mul 1279 224 1326; Sub 1123 1123 1279; Mul 1115 216 1115; Mul 1279 240 1148; Sub 1115 1115 1279;
  Sub 1123 1123 1115; Mul 1115 115 1580; Sub 1123 1123 1115; Mul 1115 212 1167; Mul 1115 242 1115;
  Mul 1279 247 1104; Sub 1115 1115 1279; Sub 1115 1123 1115; Mul 1279 249 1115; Mul 1145 213 1456;
  Mul 1128 248 1145; Add 1199 1279 1128; Sub 1613 1105 1199; Sub 1259 1259 1613; Add 1128 1128 1279;
  Add 1517 1517 1442; Sub 1442 1128 1517; Add 1259 1259 1442; Mul 1442 9 1240; Mul 1279 217 1594;
  Add 1442 1442 1279; Mul 1279 8 1205; Mul 1613 220 1126; Add 1279 1279 1613; Sub 1442 1442 1279;
  Mul 1279 254 1442; Mul 1613 218 1594; Mul 1036 9 1424; Add 1613 1613 1036; Mul 1036 8 1577; Mul 1562 221 1126;
  Sub 1036 1036 1562; Sub 1613 1613 1036; Mul 1036 253 1613; Add 1279 1279 1036; Mul 1240 8 1240;
  Mul 1036 217 1126; Sub 1240 1240 1036; Mul 1036 220 1594; Mul 1562 9 1205; Sub 1036 1036 1562;
  Sub 1240 1240 1036; Mul 1036 257 1240; Mul 1562 221 1594; Mul 1247 9 1577; Add 1562 1562 1247;
  Mul 1247 8 1424; Mul 1420 218 1126; Sub 1247 1247 1420; Add 1562 1562 1247; Mul 1247 256 1562;
  Add 1036 1036 1247; Mul 1247 259 1580; Sub 1420 1323 1488; Mul 1400 215 1420; Add 1247 1247 1400;
  Sub 1036 1036 1247; Add 1279 1279 1036; Mul 1036 213 1279; Mul 1247 276 1036; Mul 1400 114 1594;
  Mul 1528 9 1307; Sub 1400 1400 1528; Mul 1528 8 1483; Mul 1425 113 1126; Sub 1528 1528 1425;
  Sub 1400 1400 1528; Mul 1528 260 1400; Mul 1425 9 1483; Mul 1261 113 1594; Add 1425 1425 1261;
  Mul 1261 8 1307; Mul 1695 114 1126; Add 1261 1261 1695; Sub 1425 1425 1261; Mul 1261 263 1425;
  Add 1528 1528 1261; Mul 1261 265 1528; Mul 1695 8 1194; Mul 1353 224 1126; Sub 1695 1695 1353;
  Mul 1353 9 1650; Mul 1315 228 1594; Add 1353 1353 1315; Add 1695 1695 1353; Mul 1353 262 1695;
  Add 1261 1261 1353; Mul 1353 127 1400; Mul 1315 268 1425; Add 1353 1353 1315; Mul 1315 216 1353;
  Mul 1236 267 1148; Sub 1315 1315 1236; Add 1261 1261 1315; Mul 1315 135 1442; Mul 1236 95 1580;
  Add 1315 1315 1236; Sub 1261 1261 1315; Mul 1315 102 1194; Mul 1236 108 1148; Sub 1315 1315 1236;
  Mul 1236 79 1695; Mul 1140 8 1650; Mul 1668 228 1126; Sub 1140 1140 1668; Mul 1668 9 1194; Mul 1356 224 1594;
  Add 1668 1668 1356; Sub 1140 1140 1668; Mul 1668 85 1140; Mul 1356 81 1148; Sub 1668 1668 1356;
  Add 1236 1236 1668; Add 1236 1315 1236; Mul 1668 269 1236; Mul 1668 275 1668; Mul 1356 79 1400;
  Mul 1694 85 1425; Add 1356 1356 1694; Mul 1694 102 1483; Sub 1356 1356 1694; Mul 1242 272 1356;
  Add 1668 1668 1242; Sub 1668 1261 1668; Mul 1242 258 1668; Add 1252 1247 1242; Mul 1546 254 1695;
  Mul 1076 265 1613; Add 1546 1546 1076; Mul 1076 216 1420; Mul 1460 259 1148; Sub 1076 1076 1460;
  Mul 1460 257 1140; Mul 1467 273 1562; Add 1460 1460 1467; Add 1076 1076 1460; Add 1546 1546 1076;
  Mul 1076 213 1546; Mul 1460 284 1076].
Definition casadi_f0_462 : list instruction := [
  Mul 1467 253 1528; Mul 1648 262 1442; Add 1467 1467 1648; Mul 1353 215 1353; Mul 1648 267 1580;
  Add 1353 1353 1648; Sub 1467 1467 1353; Mul 1353 95 1148; Mul 1648 135 1695; Add 1353 1353 1648;
  Add 1467 1467 1353; Mul 1353 79 1442; Mul 1648 85 1240; Mul 1585 81 1580; Sub 1648 1648 1585;
  Add 1353 1353 1648; Mul 1648 102 1205; Mul 1585 108 1580; Add 1648 1648 1585; Sub 1353 1353 1648;
  Mul 1585 269 1353; Mul 1419 275 1585; Mul 1266 283 1356; Add 1419 1419 1266; Sub 1419 1467 1419;
  Mul 1266 279 1419; Add 1603 1460 1266; Sub 1135 1252 1603; Mul 1230 292 1356; Mul 1032 288 1425;
  Mul 1679 287 1594; Mul 1147 108 1424; Mul 1282 9 1147; Add 1679 1679 1282; Mul 1282 102 1323;
  Mul 1545 108 1577; Add 1282 1282 1545; Mul 1545 8 1282; Mul 1628 289 1126; Sub 1545 1545 1628;
  Sub 1679 1679 1545; Mul 1545 264 1679; Add 1032 1032 1545; Mul 1545 291 1400; Mul 1147 8 1147;
  Mul 1628 287 1126; Sub 1147 1147 1628; Mul 1628 289 1594; Mul 1282 9 1282; Add 1628 1628 1282;
  Add 1147 1147 1628; Mul 1628 261 1147; Add 1545 1545 1628; Sub 1032 1032 1545; Mul 1545 281 1546;
  Mul 1628 278 1648; Sub 1545 1545 1628; Mul 1628 255 1315; Mul 1282 270 1279; Add 1628 1628 1282;
  Sub 1545 1545 1628; Add 1032 1032 1545; Mul 1545 213 1032; Mul 1545 269 1545; Mul 1628 275 1545;
  Add 1282 1230 1628; Mul 1077 288 1240; Mul 1324 256 1679; Add 1077 1077 1324; Mul 1324 295 1580;
  Mul 1476 102 1424; Mul 1351 215 1476; Add 1324 1324 1351; Sub 1077 1077 1324; Mul 1324 291 1442;
  Mul 1351 253 1147; Add 1324 1324 1351; Sub 1077 1077 1324; Mul 1324 296 1315; Mul 1351 254 1400;
  Mul 1318 261 1613; Add 1351 1351 1318; Mul 1318 257 1425; Mul 1075 264 1562; Add 1318 1318 1075;
  Add 1351 1351 1318; Mul 1318 270 1351; Add 1324 1324 1318; Mul 1318 274 1546; Mul 1075 278 1694;
  Sub 1318 1318 1075; Sub 1324 1324 1318; Add 1077 1077 1324; Mul 1324 213 1077; Mul 1324 269 1324;
  Mul 1318 282 1324; Mul 1075 297 1353; Add 1513 1318 1075; Mul 1475 216 1476; Mul 1232 295 1148;
  Sub 1475 1475 1232; Mul 1232 288 1140; Mul 1375 273 1679; Add 1232 1232 1375; Add 1475 1475 1232;
  Mul 1232 291 1695; Mul 1375 265 1147; Add 1232 1232 1375; Sub 1475 1475 1232; Mul 1232 274 1279;
  Mul 1375 255 1694; Sub 1232 1232 1375; Mul 1375 281 1351; Mul 1169 296 1648; Sub 1375 1375 1169;
  Sub 1232 1232 1375; Add 1475 1475 1232; Mul 1232 213 1475; Mul 1232 269 1232; Mul 1375 271 1232;
  Mul 1169 300 1236; Add 1301 1375 1169; Add 1628 1628 1230; Add 1230 1301 1628; Add 1513 1513 1230;
  Sub 1281 1282 1513; Add 1075 1075 1318; Add 1169 1169 1375; Add 1282 1169 1282; Add 1075 1075 1282;
  Sub 1628 1628 1075; Add 1281 1281 1628; Add 1266 1266 1460; Add 1242 1242 1247; Sub 1247 1266 1242;
  Add 1281 1281 1247; Sub 1135 1135 1281; Mul 1281 66 1442; Mul 1247 253 1158; Sub 1281 1281 1247;
  Mul 1247 53 1240; Mul 1460 256 1165; Add 1247 1247 1460; Sub 1281 1281 1247; Mul 1247 308 1281;
  Mul 1460 66 1613; Mul 1628 254 1158; Sub 1460 1460 1628; Mul 1628 257 1165].
Definition casadi_f0_463 : list instruction := [
  Mul 1375 53 1562; Add 1628 1628 1375; Sub 1460 1460 1628; Mul 1628 304 1460; Add 1247 1247 1628;
  Mul 1628 53 1442; Mul 1375 253 1165; Add 1628 1628 1375; Mul 1375 66 1240; Mul 1318 256 1158;
  Sub 1375 1375 1318; Add 1628 1628 1375; Mul 1375 311 1628; Mul 1318 254 1165; Mul 1666 53 1613;
  Add 1318 1318 1666; Mul 1666 66 1562; Mul 1163 257 1158; Sub 1666 1666 1163; Add 1318 1318 1666;
  Mul 1666 310 1318; Add 1375 1375 1666; Mul 1666 313 1580; Add 1163 1655 1420; Mul 1574 215 1163;
  Add 1666 1666 1574; Sub 1375 1375 1666; Add 1247 1247 1375; Mul 1375 213 1247; Mul 1666 330 1375;
  Mul 1574 66 1400; Mul 1177 261 1158; Sub 1574 1574 1177; Mul 1177 53 1425; Mul 1687 264 1165;
  Add 1177 1177 1687; Sub 1574 1574 1177; Mul 1177 314 1574; Mul 1687 53 1400; Mul 1643 261 1165;
  Add 1687 1687 1643; Mul 1643 66 1425; Mul 1296 264 1158; Sub 1643 1643 1296; Add 1687 1687 1643;
  Mul 1643 317 1687; Add 1177 1177 1643; Mul 1643 319 1177; Mul 1296 66 1695; Mul 1535 265 1158;
  Sub 1296 1296 1535; Mul 1535 53 1140; Mul 1187 273 1165; Add 1535 1535 1187; Sub 1296 1296 1535;
  Mul 1535 316 1296; Add 1643 1643 1535; Mul 1535 128 1574; Mul 1187 322 1687; Add 1535 1535 1187;
  Mul 1187 216 1535; Mul 1354 321 1148; Sub 1187 1187 1354; Add 1643 1643 1187; Mul 1187 131 1281;
  Mul 1354 68 1580; Add 1187 1187 1354; Sub 1643 1643 1187; Mul 1187 91 1695; Mul 1354 86 1140;
  Add 1187 1187 1354; Add 1187 1315 1187; Mul 1354 61 1296; Mul 1275 53 1695; Mul 1543 265 1165;
  Add 1275 1275 1543; Mul 1543 66 1140; Mul 1216 273 1158; Sub 1543 1543 1216; Add 1275 1275 1543;
  Mul 1543 54 1275; Mul 1216 47 1148; Sub 1543 1543 1216; Add 1354 1354 1543; Add 1354 1187 1354;
  Mul 1543 323 1354; Mul 1543 329 1543; Mul 1216 91 1400; Mul 1425 86 1425; Add 1216 1216 1425;
  Sub 1216 1216 1694; Mul 1425 61 1574; Mul 1235 54 1687; Add 1425 1425 1235; Add 1425 1216 1425;
  Mul 1235 326 1425; Add 1543 1543 1235; Sub 1543 1643 1543; Mul 1235 312 1543; Add 1250 1666 1235;
  Mul 1670 308 1296; Mul 1022 319 1460; Add 1670 1670 1022; Mul 1022 216 1163; Mul 1206 313 1148;
  Sub 1022 1022 1206; Mul 1206 311 1275; Mul 1540 327 1318; Add 1206 1206 1540; Add 1022 1022 1206;
  Add 1670 1670 1022; Mul 1022 213 1670; Mul 1206 338 1022; Mul 1540 304 1177; Mul 1671 316 1281;
  Add 1540 1540 1671; Mul 1535 215 1535; Mul 1671 321 1580; Add 1535 1535 1671; Sub 1540 1540 1535;
  Mul 1535 68 1148; Mul 1671 131 1296; Add 1535 1535 1671; Add 1540 1540 1535; Mul 1535 91 1442;
  Mul 1240 86 1240; Add 1535 1535 1240; Sub 1535 1535 1648; Mul 1240 61 1281; Mul 1671 54 1628;
  Mul 1227 47 1580; Sub 1671 1671 1227; Add 1240 1240 1671; Add 1240 1535 1240; Mul 1671 323 1240;
  Mul 1227 329 1671; Mul 1601 337 1425; Add 1227 1227 1601; Sub 1227 1540 1227; Mul 1601 333 1227;
  Add 1558 1206 1601; Sub 1552 1250 1558; Mul 1094 346 1425; Mul 1207 342 1574; Mul 1093 86 1420;
  Sub 1093 1093 1147; Mul 1147 66 1093; Mul 1243 341 1158; Sub 1147 1147 1243].
Definition casadi_f0_464 : list instruction := [
  Mul 1243 343 1165; Mul 1420 91 1420; Sub 1679 1679 1420; Mul 1420 53 1679; Add 1243 1243 1420;
  Sub 1147 1147 1243; Mul 1243 315 1147; Add 1207 1207 1243; Mul 1243 345 1687; Mul 1420 341 1165;
  Mul 1093 53 1093; Add 1420 1420 1093; Mul 1679 66 1679; Mul 1093 343 1158; Sub 1679 1679 1093;
  Add 1420 1420 1679; Mul 1679 318 1420; Add 1243 1243 1679; Add 1207 1207 1243; Mul 1243 332 1535;
  Mul 1679 335 1670; Add 1243 1243 1679; Mul 1679 309 1187; Mul 1093 324 1247; Add 1679 1679 1093;
  Sub 1243 1243 1679; Add 1207 1207 1243; Mul 1243 213 1207; Mul 1243 323 1243; Mul 1679 329 1243;
  Add 1093 1094 1679; Mul 1481 342 1281; Mul 1302 304 1147; Add 1481 1481 1302; Mul 1302 345 1628;
  Mul 1688 310 1420; Add 1302 1302 1688; Mul 1688 350 1580; Mul 1613 86 1613; Mul 1562 91 1562;
  Sub 1613 1613 1562; Sub 1476 1476 1613; Mul 1613 215 1476; Add 1688 1688 1613; Sub 1302 1302 1688;
  Add 1481 1481 1302; Mul 1302 349 1187; Mul 1688 308 1574; Mul 1613 315 1460; Add 1688 1688 1613;
  Mul 1613 311 1687; Mul 1562 318 1318; Add 1613 1613 1562; Add 1688 1688 1613; Mul 1613 324 1688;
  Add 1302 1302 1613; Mul 1613 332 1216; Mul 1562 328 1670; Add 1613 1613 1562; Sub 1302 1302 1613;
  Add 1481 1481 1302; Mul 1302 213 1481; Mul 1302 323 1302; Mul 1613 336 1302; Mul 1562 351 1240;
  Add 1581 1613 1562; Mul 1412 342 1296; Mul 1188 319 1147; Add 1412 1412 1188; Mul 1188 216 1476;
  Mul 1473 350 1148; Sub 1188 1188 1473; Mul 1473 345 1275; Mul 1589 327 1420; Add 1473 1473 1589;
  Add 1188 1188 1473; Add 1412 1412 1188; Mul 1188 309 1216; Mul 1473 328 1247; Add 1188 1188 1473;
  Mul 1473 349 1535; Mul 1589 335 1688; Add 1473 1473 1589; Sub 1188 1188 1473; Add 1412 1412 1188;
  Mul 1188 213 1412; Mul 1188 323 1188; Mul 1473 325 1188; Mul 1589 354 1354; Add 1566 1473 1589;
  Add 1679 1679 1094; Add 1094 1566 1679; Add 1581 1581 1094; Sub 1435 1093 1581; Add 1562 1562 1613;
  Add 1589 1589 1473; Add 1093 1589 1093; Add 1562 1562 1093; Sub 1679 1679 1562; Add 1435 1435 1679;
  Add 1601 1601 1206; Add 1235 1235 1666; Sub 1666 1601 1235; Add 1435 1435 1666; Sub 1552 1552 1435;
  Mul 1435 19 1281; Mul 1666 304 1290; Sub 1435 1435 1666; Mul 1666 35 1580; Mul 1206 215 1382;
  Add 1666 1666 1206; Add 1435 1435 1666; Mul 1666 362 1435; Mul 1206 19 1460; Mul 1679 308 1290;
  Sub 1206 1206 1679; Mul 1679 313 1382; Mul 1473 35 1163; Add 1679 1679 1473; Sub 1206 1206 1679;
  Mul 1679 358 1206; Add 1666 1666 1679; Mul 1679 35 1281; Mul 1473 304 1382; Add 1679 1679 1473;
  Mul 1473 19 1580; Mul 1613 215 1290; Sub 1473 1473 1613; Sub 1679 1679 1473; Mul 1473 365 1679;
  Mul 1613 308 1382; Mul 1662 35 1460; Add 1613 1613 1662; Mul 1662 19 1163; Mul 1504 313 1290;
  Sub 1662 1662 1504; Add 1613 1613 1662; Mul 1662 364 1613; Add 1473 1473 1662; Mul 1662 367 1628;
  Sub 1504 1318 1168; Mul 1423 310 1504; Add 1662 1662 1423; Add 1473 1473 1662; Add 1666 1666 1473;
  Mul 1473 213 1666; Mul 1662 385 1473; Mul 1423 19 1574; Mul 1102 315 1290].
Definition casadi_f0_465 : list instruction := [
  Sub 1423 1423 1102; Mul 1102 368 1423; Mul 1185 35 1574; Mul 1639 315 1382; Add 1185 1185 1639;
  Mul 1639 39 1185; Mul 1625 373 1687; Add 1639 1639 1625; Add 1102 1102 1639; Mul 1639 372 1102;
  Mul 1625 19 1296; Mul 1478 319 1290; Sub 1625 1625 1478; Mul 1478 216 1382; Mul 1627 35 1148;
  Sub 1478 1478 1627; Sub 1625 1625 1478; Mul 1478 370 1625; Add 1639 1639 1478; Mul 1478 39 1423;
  Mul 1627 376 1185; Add 1478 1478 1627; Mul 1627 377 1478; Mul 1544 35 1296; Mul 1518 319 1382;
  Add 1544 1544 1518; Mul 1518 19 1148; Mul 1151 216 1290; Add 1518 1518 1151; Sub 1544 1544 1518;
  Mul 1518 375 1544; Add 1627 1627 1518; Add 1639 1639 1627; Mul 1627 69 1679; Add 1639 1639 1627;
  Mul 1627 62 1296; Mul 1518 55 1275; Mul 1151 48 1148; Sub 1518 1518 1151; Add 1627 1627 1518;
  Add 1627 1187 1627; Mul 1518 380 1625; Mul 1151 24 1544; Mul 1509 31 1275; Add 1151 1151 1509;
  Add 1518 1518 1151; Add 1518 1627 1518; Mul 1151 378 1518; Mul 1151 384 1151; Mul 1509 62 1574;
  Mul 1674 55 1687; Add 1509 1509 1674; Add 1509 1216 1509; Mul 1674 380 1423; Mul 1164 24 1185;
  Mul 1018 31 1687; Add 1164 1164 1018; Add 1674 1674 1164; Add 1674 1509 1674; Mul 1164 382 1674;
  Add 1151 1151 1164; Sub 1151 1639 1151; Mul 1164 366 1151; Add 1018 1662 1164; Mul 1025 362 1625;
  Mul 1176 372 1206; Add 1025 1025 1176; Mul 1176 365 1544; Mul 1438 377 1613; Add 1176 1176 1438;
  Mul 1438 367 1275; Mul 1225 327 1504; Add 1438 1438 1225; Add 1176 1176 1438; Add 1025 1025 1176;
  Mul 1176 213 1025; Mul 1438 393 1176; Mul 1225 358 1102; Mul 1573 370 1435; Add 1225 1225 1573;
  Mul 1573 364 1478; Mul 1193 375 1679; Add 1573 1573 1193; Add 1225 1225 1573; Mul 1573 69 1544;
  Sub 1225 1225 1573; Mul 1573 62 1281; Mul 1193 55 1628; Mul 1285 48 1580; Sub 1193 1193 1285;
  Add 1573 1573 1193; Add 1573 1535 1573; Mul 1193 380 1435; Mul 1285 24 1679; Mul 1362 31 1628;
  Add 1285 1285 1362; Add 1193 1193 1285; Add 1193 1573 1193; Mul 1285 378 1193; Mul 1362 384 1285;
  Mul 1325 392 1674; Add 1362 1362 1325; Sub 1362 1225 1362; Mul 1325 388 1362; Add 1396 1438 1325;
  Sub 1427 1018 1396; Mul 1332 401 1674; Mul 1047 397 1423; Mul 1278 48 1318; Mul 1503 55 1163;
  Sub 1278 1278 1503; Sub 1147 1147 1278; Mul 1278 19 1147; Mul 1503 396 1290; Sub 1278 1278 1503;
  Mul 1503 398 1382; Mul 1620 55 1460; Mul 1318 62 1318; Sub 1620 1620 1318; Sub 1476 1476 1620;
  Mul 1620 35 1476; Add 1503 1503 1620; Sub 1278 1278 1503; Mul 1503 369 1278; Add 1047 1047 1503;
  Mul 1503 400 1185; Mul 1620 396 1382; Mul 1147 35 1147; Add 1620 1620 1147; Mul 1476 19 1476;
  Mul 1147 398 1290; Sub 1476 1476 1147; Add 1620 1620 1476; Mul 1476 371 1620; Add 1503 1503 1476;
  Mul 1476 402 1687; Mul 1163 62 1163; Mul 1460 48 1460; Sub 1163 1163 1460; Sub 1420 1420 1163;
  Mul 1163 318 1420; Add 1476 1476 1163; Add 1503 1503 1476; Add 1047 1047 1503; Mul 1503 387 1573;
  Mul 1476 390 1025; Add 1503 1503 1476; Mul 1476 363 1627; Mul 1163 379 1666].
Definition casadi_f0_466 : list instruction := [
  Add 1476 1476 1163; Sub 1503 1503 1476; Add 1047 1047 1503; Mul 1503 213 1047; Mul 1503 378 1503;
  Mul 1476 384 1503; Add 1163 1332 1476; Mul 1460 397 1435; Mul 1147 358 1278; Add 1460 1460 1147;
  Mul 1147 400 1679; Mul 1318 364 1620; Add 1147 1147 1318; Mul 1318 402 1628; Mul 1200 310 1420;
  Add 1318 1318 1200; Add 1147 1147 1318; Add 1460 1460 1147; Mul 1147 405 1627; Mul 1318 362 1423;
  Mul 1200 369 1206; Add 1318 1318 1200; Mul 1200 365 1185; Mul 1439 371 1613; Add 1200 1200 1439;
  Mul 1439 367 1687; Mul 1190 318 1504; Add 1439 1439 1190; Add 1200 1200 1439; Add 1318 1318 1200;
  Mul 1200 379 1318; Add 1147 1147 1200; Mul 1200 387 1509; Mul 1439 383 1025; Add 1200 1200 1439;
  Sub 1147 1147 1200; Add 1460 1460 1147; Mul 1147 213 1460; Mul 1147 378 1147; Mul 1200 391 1147;
  Mul 1439 406 1193; Add 1190 1200 1439; Mul 1314 397 1625; Mul 1052 372 1278; Add 1314 1314 1052;
  Mul 1052 400 1544; Mul 1395 377 1620; Add 1052 1052 1395; Mul 1395 402 1275; Mul 1491 327 1420;
  Add 1395 1395 1491; Add 1052 1052 1395; Add 1314 1314 1052; Mul 1052 363 1509; Mul 1395 383 1666;
  Add 1052 1052 1395; Mul 1395 405 1573; Mul 1491 390 1318; Add 1395 1395 1491; Sub 1052 1052 1395;
  Add 1314 1314 1052; Mul 1052 213 1314; Mul 1052 378 1052; Mul 1395 381 1052; Mul 1491 409 1518;
  Add 1118 1395 1491; Add 1476 1476 1332; Add 1332 1118 1476; Add 1190 1190 1332; Sub 1696 1163 1190;
  Add 1439 1439 1200; Add 1491 1491 1395; Add 1163 1491 1163; Add 1439 1439 1163; Sub 1476 1476 1439;
  Add 1696 1696 1476; Add 1325 1325 1438; Add 1164 1164 1662; Sub 1662 1325 1164; Add 1696 1696 1662;
  Sub 1427 1427 1696; Mul 1696 413 1435; Sub 1662 1206 1578; Mul 1438 358 1662; Add 1696 1696 1438;
  Mul 1438 16 1679; Mul 1476 364 1186; Sub 1438 1438 1476; Mul 1476 15 1628; Mul 1395 310 1246;
  Add 1476 1476 1395; Sub 1438 1438 1476; Mul 1476 419 1438; Mul 1395 16 1613; Mul 1200 365 1186;
  Sub 1395 1395 1200; Mul 1200 367 1246; Mul 1559 15 1504; Add 1200 1200 1559; Sub 1395 1395 1200;
  Mul 1200 418 1395; Add 1476 1476 1200; Mul 1200 15 1679; Mul 1559 364 1246; Add 1200 1200 1559;
  Mul 1559 16 1628; Mul 1154 310 1186; Sub 1559 1559 1154; Add 1200 1200 1559; Mul 1559 422 1200;
  Mul 1154 365 1246; Mul 1089 15 1613; Add 1154 1154 1089; Mul 1089 16 1504; Mul 1183 367 1186;
  Sub 1089 1089 1183; Add 1154 1154 1089; Mul 1089 421 1154; Add 1559 1559 1089; Add 1476 1476 1559;
  Add 1696 1696 1476; Mul 1476 213 1696; Mul 1559 439 1476; Mul 1089 423 1423; Mul 1183 16 1185;
  Mul 1360 371 1186; Sub 1183 1183 1360; Mul 1360 15 1687; Mul 1681 318 1246; Add 1360 1360 1681;
  Sub 1183 1183 1360; Mul 1360 40 1183; Mul 1681 15 1185; Mul 1409 371 1246; Add 1681 1681 1409;
  Mul 1409 16 1687; Mul 1311 318 1186; Sub 1409 1409 1311; Add 1681 1681 1409; Mul 1409 42 1681;
  Add 1360 1360 1409; Add 1089 1089 1360; Mul 1360 372 1089; Mul 1409 424 1625; Add 1360 1360 1409;
  Mul 1409 40 1423; Mul 1311 14 1183; Mul 1201 18 1681; Add 1311 1311 1201].
Definition casadi_f0_467 : list instruction := [
  Add 1409 1409 1311; Mul 1311 429 1409; Mul 1201 16 1544; Mul 1457 377 1186; Sub 1201 1201 1457;
  Mul 1457 15 1275; Mul 1111 327 1246; Add 1457 1457 1111; Sub 1201 1201 1457; Mul 1457 428 1201;
  Add 1311 1311 1457; Add 1360 1360 1311; Mul 1311 43 1438; Mul 1457 431 1435; Sub 1311 1311 1457;
  Add 1360 1360 1311; Mul 1311 198 1625; Mul 1457 25 1544; Mul 1111 32 1275; Add 1457 1457 1111;
  Add 1311 1311 1457; Add 1311 1627 1311; Mul 1457 433 1625; Mul 1111 26 1201; Mul 1244 15 1544;
  Mul 1593 377 1246; Add 1244 1244 1593; Mul 1593 16 1275; Mul 1087 327 1186; Sub 1593 1593 1087;
  Add 1244 1244 1593; Mul 1593 28 1244; Add 1111 1111 1593; Add 1457 1457 1111; Add 1457 1311 1457;
  Mul 1111 430 1457; Mul 1111 438 1111; Mul 1593 198 1423; Mul 1087 25 1185; Mul 1441 32 1687;
  Add 1087 1087 1441; Add 1593 1593 1087; Add 1593 1509 1593; Mul 1087 433 1423; Mul 1441 26 1183;
  Mul 1647 28 1681; Add 1441 1441 1647; Add 1087 1087 1441; Add 1087 1593 1087; Mul 1441 435 1087;
  Add 1111 1111 1441; Sub 1111 1360 1111; Mul 1441 420 1111; Add 1647 1559 1441; Mul 1689 413 1625;
  Mul 1378 372 1662; Add 1689 1689 1378; Mul 1378 419 1201; Mul 1525 429 1395; Add 1378 1378 1525;
  Mul 1525 422 1244; Mul 1062 436 1154; Add 1525 1525 1062; Add 1378 1378 1525; Add 1689 1689 1378;
  Mul 1378 213 1689; Mul 1525 447 1378; Mul 1062 358 1089; Mul 1393 424 1435; Add 1062 1062 1393;
  Mul 1393 418 1409; Mul 1449 428 1438; Add 1393 1393 1449; Add 1062 1062 1393; Mul 1393 43 1201;
  Mul 1449 431 1625; Sub 1393 1393 1449; Sub 1062 1062 1393; Mul 1393 198 1435; Mul 1449 25 1679;
  Mul 1458 32 1628; Add 1449 1449 1458; Add 1393 1393 1449; Add 1393 1573 1393; Mul 1449 433 1435;
  Mul 1458 26 1438; Mul 1564 28 1200; Add 1458 1458 1564; Add 1449 1449 1458; Add 1449 1393 1449;
  Mul 1458 430 1449; Mul 1564 438 1458; Mul 1173 446 1087; Add 1564 1564 1173; Sub 1564 1062 1564;
  Mul 1173 442 1564; Add 1055 1525 1173; Sub 1572 1647 1055; Mul 1690 455 1087; Mul 1646 450 1423;
  Mul 1608 25 1504; Mul 1468 32 1613; Sub 1608 1608 1468; Sub 1278 1278 1608; Mul 1608 369 1278;
  Add 1646 1646 1608; Mul 1608 453 1183; Mul 1468 32 1206; Mul 1504 198 1504; Sub 1468 1468 1504;
  Sub 1620 1620 1468; Mul 1468 16 1620; Mul 1504 452 1186; Sub 1468 1468 1504; Mul 1504 454 1246;
  Mul 1613 198 1613; Mul 1206 25 1206; Sub 1613 1613 1206; Sub 1420 1420 1613; Mul 1613 15 1420;
  Add 1504 1504 1613; Sub 1468 1468 1504; Mul 1504 425 1468; Add 1608 1608 1504; Mul 1504 456 1681;
  Mul 1613 452 1246; Mul 1620 15 1620; Add 1613 1613 1620; Mul 1420 16 1420; Mul 1620 454 1186;
  Sub 1420 1420 1620; Add 1613 1613 1420; Mul 1420 427 1613; Add 1504 1504 1420; Add 1608 1608 1504;
  Add 1646 1646 1608; Mul 1608 441 1393; Mul 1504 444 1689; Add 1608 1608 1504; Mul 1504 417 1311;
  Mul 1420 432 1696; Add 1504 1504 1420; Sub 1608 1608 1504; Add 1646 1646 1608; Mul 1608 213 1646;
  Mul 1608 430 1608; Mul 1504 438 1608; Add 1420 1690 1504; Mul 1620 450 1435].
Definition casadi_f0_468 : list instruction := [
  Mul 1206 358 1278; Add 1620 1620 1206; Mul 1206 453 1438; Mul 1649 418 1468; Add 1206 1206 1649;
  Mul 1200 456 1200; Mul 1649 421 1613; Add 1200 1200 1649; Add 1206 1206 1200; Add 1620 1620 1206;
  Mul 1206 459 1311; Mul 1200 413 1423; Mul 1662 369 1662; Add 1200 1200 1662; Mul 1662 419 1183;
  Mul 1395 425 1395; Add 1662 1662 1395; Mul 1681 422 1681; Mul 1154 427 1154; Add 1681 1681 1154;
  Add 1662 1662 1681; Add 1200 1200 1662; Mul 1662 432 1200; Add 1206 1206 1662; Mul 1662 441 1593;
  Mul 1681 437 1689; Add 1662 1662 1681; Sub 1206 1206 1662; Add 1620 1620 1206; Mul 1206 213 1620;
  Mul 1206 430 1206; Mul 1662 445 1206; Mul 1681 460 1449; Add 1154 1662 1681; Mul 1395 450 1625;
  Mul 1278 372 1278; Add 1395 1395 1278; Mul 1278 453 1201; Mul 1468 429 1468; Add 1278 1278 1468;
  Mul 1468 456 1244; Mul 1613 436 1613; Add 1468 1468 1613; Add 1278 1278 1468; Add 1395 1395 1278;
  Mul 1278 417 1593; Mul 1468 437 1696; Add 1278 1278 1468; Mul 1468 459 1393; Mul 1613 444 1200;
  Add 1468 1468 1613; Sub 1278 1278 1468; Add 1395 1395 1278; Mul 1278 213 1395; Mul 1278 430 1278;
  Mul 1468 434 1278; Mul 1613 463 1457; Add 1649 1468 1613; Add 1504 1504 1690; Add 1690 1649 1504;
  Add 1154 1154 1690; Sub 1270 1420 1154; Add 1681 1681 1662; Add 1613 1613 1468; Add 1420 1613 1420;
  Add 1681 1681 1420; Sub 1504 1504 1681; Add 1270 1270 1504; Add 1173 1173 1525; Add 1441 1441 1559;
  Sub 1559 1173 1441; Add 1270 1270 1559; Sub 1572 1572 1270; Add 1427 1427 1572; Add 1552 1552 1427;
  Add 1135 1135 1552; Add 1259 1259 1135; Mul 1259 0 1259; Mul 1135 235 1524; Add 1259 1259 1135;
  Mul 1528 261 1528; Mul 1135 262 1400; Add 1528 1528 1135; Mul 1177 315 1177; Mul 1135 316 1574;
  Add 1177 1177 1135; Mul 1102 369 1102; Mul 1135 370 1423; Add 1102 1102 1135; Mul 1478 371 1478;
  Mul 1135 375 1185; Add 1478 1478 1135; Add 1102 1102 1478; Mul 1089 369 1089; Mul 1478 424 1423;
  Add 1089 1089 1478; Mul 1409 425 1409; Mul 1478 428 1183; Add 1409 1409 1478; Add 1089 1089 1409;
  Add 1409 1102 1089; Sub 1478 1193 1449; Mul 1135 480 1478; Sub 1552 1518 1457; Mul 1270 1197 1552;
  Add 1559 1135 1270; Mul 1559 20 1559; Add 1409 1409 1559; Add 1559 1177 1409; Mul 1525 485 1193;
  Mul 1504 50 1449; Add 1525 1525 1504; Sub 1504 1240 1525; Mul 1468 487 1504; Mul 1662 485 1518;
  Mul 1038 50 1457; Add 1662 1662 1038; Sub 1038 1354 1662; Mul 1189 1286 1038; Add 1349 1468 1189;
  Mul 1349 37 1349; Add 1559 1559 1349; Add 1349 1528 1559; Mul 1621 493 1240; Mul 1364 83 1525;
  Add 1621 1621 1364; Sub 1364 1353 1621; Mul 1682 495 1364; Mul 1609 493 1354; Mul 1567 83 1662;
  Add 1609 1609 1567; Sub 1567 1236 1609; Mul 1598 1294 1567; Add 1500 1682 1598; Mul 1500 80 1500;
  Add 1349 1349 1500; Mul 1500 237 1483; Mul 1326 113 1326; Sub 1500 1500 1326; Sub 1326 1349 1500;
  Mul 1611 501 1236; Mul 1134 104 1609; Add 1611 1611 1134; Sub 1134 1167 1611; Mul 1161 1299 1134;
  Mul 1653 501 1353; Mul 1233 104 1621; Add 1653 1653 1233; Add 1233 1602 1653].
Definition casadi_f0_469 : list instruction := [
  Mul 1452 503 1233; Sub 1486 1161 1452; Mul 1486 100 1486; Add 1326 1326 1486; Mul 1326 508 1326;
  Mul 1486 216 1456; Mul 1701 219 1148; Sub 1486 1486 1701; Mul 1701 215 1699; Mul 1288 227 1580;
  Add 1701 1701 1288; Add 1486 1486 1701; Mul 1701 500 1486; Add 1326 1326 1701; Add 1701 1225 1062;
  Mul 1478 20 1478; Mul 1288 512 1478; Sub 1451 1674 1087; Mul 1537 511 1451; Add 1288 1288 1537;
  Sub 1701 1701 1288; Add 1288 1540 1701; Mul 1504 37 1504; Mul 1537 516 1504; Mul 1502 485 1674;
  Mul 1021 50 1087; Add 1502 1502 1021; Sub 1021 1425 1502; Mul 1283 514 1021; Add 1537 1537 1283;
  Sub 1288 1288 1537; Add 1537 1467 1288; Mul 1364 80 1364; Mul 1283 520 1364; Mul 1172 493 1425;
  Mul 1519 83 1502; Add 1172 1172 1519; Sub 1519 1356 1172; Mul 1624 518 1519; Add 1283 1283 1624;
  Sub 1537 1537 1283; Add 1283 1019 1537; Mul 1233 100 1233; Mul 1624 524 1233; Mul 1522 501 1356;
  Mul 1106 104 1172; Add 1522 1522 1106; Add 1106 1104 1522; Mul 1383 522 1106; Add 1624 1624 1383;
  Add 1283 1283 1624; Mul 1624 526 1283; Mul 1383 221 1483; Mul 1577 113 1577; Add 1383 1383 1577;
  Mul 1424 114 1424; Mul 1577 218 1307; Sub 1424 1424 1577; Add 1383 1383 1424; Mul 1424 216 1383;
  Mul 1577 525 1148; Sub 1424 1424 1577; Mul 1577 521 1424; Add 1624 1624 1577; Add 1577 1639 1360;
  Mul 1082 20 1552; Mul 1082 512 1082; Mul 1146 529 1451; Add 1082 1082 1146; Sub 1577 1577 1082;
  Add 1082 1643 1577; Mul 1146 37 1038; Mul 1146 516 1146; Mul 1459 531 1021; Add 1146 1146 1459;
  Sub 1082 1082 1146; Add 1146 1261 1082; Mul 1459 80 1567; Mul 1459 520 1459; Mul 1532 533 1519;
  Add 1459 1459 1532; Sub 1146 1146 1459; Add 1459 1123 1146; Mul 1532 100 1134; Mul 1532 524 1532;
  Mul 1133 535 1106; Sub 1532 1532 1133; Sub 1459 1459 1532; Mul 1532 536 1459; Mul 1133 215 1383;
  Mul 1346 525 1580; Add 1133 1133 1346; Mul 1346 534 1133; Add 1532 1532 1346; Add 1624 1624 1532;
  Sub 1326 1326 1624; Mul 1624 120 1653; Mul 1532 527 1602; Sub 1624 1624 1532; Mul 1532 539 1624;
  Mul 1346 120 1522; Mul 1109 527 1104; Sub 1346 1346 1109; Mul 1109 526 1346; Mul 1493 538 1424;
  Add 1109 1109 1493; Mul 1493 508 1624; Mul 1313 537 1486; Add 1493 1493 1313; Add 1109 1109 1493;
  Mul 1493 540 1383; Mul 1313 214 1148; Mul 1587 525 1313; Sub 1493 1493 1587; Sub 1109 1109 1493;
  Mul 1109 141 1109; Mul 1587 537 1109; Add 1532 1532 1587; Mul 1587 527 1167; Mul 1263 120 1611;
  Add 1587 1587 1263; Mul 1263 546 1587; Mul 1426 544 1383; Mul 1049 214 1580; Mul 1638 525 1049;
  Add 1426 1426 1638; Mul 1638 508 1587; Mul 1680 543 1486; Add 1638 1638 1680; Mul 1680 536 1346;
  Mul 1037 538 1133; Add 1680 1680 1037; Add 1638 1638 1680; Sub 1638 1426 1638; Mul 1638 141 1638;
  Mul 1680 543 1638; Add 1263 1263 1680; Sub 1532 1532 1263; Add 1326 1326 1532; Mul 1532 553 1145;
  Mul 1263 238 1194; Mul 1650 236 1650; Mul 1680 144 1148; Sub 1650 1650 1680; Add 1263 1263 1650;
  Mul 1650 224 1263; Mul 1680 542 1194; Add 1650 1650 1680; Mul 1194 144 1194].
Definition casadi_f0_470 : list instruction := [
  Mul 1680 549 1148; Sub 1194 1194 1680; Mul 1680 216 1194; Mul 1037 548 1148; Sub 1680 1680 1037;
  Add 1650 1650 1680; Mul 1680 1334 1602; Mul 1037 1336 1104; Add 1276 1680 1037; Mul 1276 212 1276;
  Sub 1276 1650 1276; Mul 1610 249 1276; Add 1579 1532 1610; Mul 1367 556 1099; Mul 1263 220 1263;
  Mul 1205 542 1205; Sub 1263 1263 1205; Mul 1194 215 1194; Mul 1205 548 1580; Add 1194 1194 1205;
  Sub 1263 1263 1194; Mul 1194 241 1167; Mul 1150 225 1150; Sub 1194 1194 1150; Sub 1194 1263 1194;
  Mul 1150 244 1194; Add 1205 1367 1150; Sub 1579 1579 1205; Mul 1205 242 1317; Mul 1634 223 1104;
  Sub 1205 1205 1634; Mul 1634 1342 1167; Sub 1680 1634 1680; Mul 1680 212 1680; Sub 1680 1680 1500;
  Mul 1222 249 1680; Mul 1340 551 1145; Add 1652 1222 1340; Mul 1344 560 1484; Mul 1604 213 1383;
  Mul 1355 243 1604; Add 1309 1344 1355; Sub 1652 1652 1309; Add 1652 1205 1652; Sub 1579 1579 1652;
  Sub 1652 1500 1650; Mul 1309 219 1652; Mul 1316 557 1456; Add 1309 1309 1316; Mul 1316 227 1263;
  Mul 1116 555 1699; Add 1316 1316 1116; Add 1309 1309 1316; Mul 1316 525 1019; Mul 1116 239 1383;
  Add 1316 1316 1116; Add 1309 1309 1316; Mul 1316 340 1167; Mul 1116 231 1699; Mul 1413 227 1602;
  Sub 1116 1116 1413; Mul 1413 219 1167; Mul 1447 225 1456; Add 1413 1413 1447; Sub 1116 1116 1413;
  Mul 1116 212 1116; Mul 1413 225 1116; Add 1316 1316 1413; Mul 1413 242 1456; Mul 1447 219 1104;
  Sub 1413 1413 1447; Mul 1447 231 1383; Mul 1369 525 1602; Sub 1447 1447 1369; Sub 1413 1413 1447;
  Sub 1413 1224 1413; Mul 1413 212 1413; Mul 1447 242 1413; Mul 1369 559 1104; Sub 1447 1447 1369;
  Add 1316 1316 1447; Sub 1309 1309 1316; Mul 1309 213 1309; Sub 1579 1579 1309; Mul 1316 567 1036;
  Mul 1447 260 1695; Mul 1369 263 1140; Mul 1533 127 1148; Sub 1369 1369 1533; Add 1447 1447 1369;
  Mul 1369 265 1447; Mul 1533 547 1695; Add 1369 1369 1533; Mul 1695 127 1695; Mul 1140 268 1140;
  Mul 1533 563 1148; Sub 1140 1140 1533; Add 1695 1695 1140; Mul 1140 216 1695; Mul 1533 562 1148;
  Sub 1140 1140 1533; Add 1369 1369 1140; Mul 1140 1138 1353; Mul 1533 1357 1356; Add 1114 1140 1533;
  Mul 1114 269 1114; Add 1114 1369 1114; Mul 1209 258 1114; Add 1455 1316 1209; Mul 1350 570 1076;
  Mul 1447 253 1447; Mul 1442 547 1442; Add 1447 1447 1442; Mul 1695 215 1695; Mul 1442 562 1580;
  Add 1695 1695 1442; Sub 1447 1447 1695; Mul 1400 135 1400; Sub 1447 1447 1400; Mul 1585 271 1585;
  Mul 1400 283 1236; Add 1585 1585 1400; Sub 1585 1447 1585; Mul 1400 279 1585; Add 1695 1350 1400;
  Sub 1455 1455 1695; Mul 1695 300 1356; Mul 1442 275 1232; Add 1557 1695 1442; Mul 1139 271 1545;
  Mul 1568 292 1236; Add 1501 1139 1568; Add 1557 1557 1501; Mul 1501 1366 1236; Add 1140 1140 1501;
  Mul 1140 269 1140; Add 1140 1528 1140; Mul 1256 258 1140; Mul 1595 565 1036; Add 1327 1256 1595;
  Mul 1171 574 1419; Mul 1192 213 1351; Mul 1549 284 1192; Add 1499 1171 1549; Sub 1327 1327 1499;
  Add 1557 1557 1327; Sub 1455 1455 1557; Mul 1557 571 1279; Add 1327 1369 1528].
Definition casadi_f0_471 : list instruction := [
  Mul 1499 255 1327; Sub 1557 1557 1499; Mul 1499 278 1447; Mul 1418 569 1546; Add 1499 1499 1418;
  Add 1557 1557 1499; Mul 1499 296 1467; Mul 1418 280 1351; Add 1499 1499 1418; Add 1557 1557 1499;
  Mul 1499 471 1236; Mul 1418 278 1353; Mul 1060 282 1546; Add 1418 1418 1060; Mul 1060 255 1236;
  Mul 1607 271 1279; Add 1060 1060 1607; Sub 1418 1418 1060; Sub 1418 1032 1418; Mul 1418 269 1418;
  Mul 1060 271 1418; Add 1499 1499 1060; Mul 1060 573 1356; Mul 1607 255 1356; Mul 1433 275 1279;
  Add 1607 1607 1433; Mul 1433 296 1353; Mul 1191 282 1351; Add 1433 1433 1191; Sub 1607 1607 1433;
  Sub 1607 1475 1607; Mul 1607 269 1607; Mul 1433 275 1607; Add 1060 1060 1433; Sub 1499 1499 1060;
  Add 1557 1557 1499; Mul 1557 213 1557; Sub 1455 1455 1557; Mul 1499 581 1375; Mul 1060 314 1296;
  Mul 1433 317 1275; Mul 1191 128 1148; Sub 1433 1433 1191; Add 1060 1060 1433; Mul 1433 319 1060;
  Mul 1191 561 1296; Add 1433 1433 1191; Mul 1296 128 1296; Mul 1191 322 1275; Mul 1656 577 1148;
  Sub 1191 1191 1656; Add 1296 1296 1191; Mul 1191 216 1296; Mul 1656 576 1148; Sub 1191 1191 1656;
  Add 1433 1433 1191; Mul 1191 1379 1240; Mul 1656 1381 1425; Add 1660 1191 1656; Mul 1660 323 1660;
  Add 1660 1433 1660; Mul 1510 312 1660; Add 1365 1499 1510; Mul 1651 584 1022; Mul 1060 304 1060;
  Mul 1281 561 1281; Add 1060 1060 1281; Mul 1296 215 1296; Mul 1281 576 1580; Add 1296 1296 1281;
  Sub 1060 1060 1296; Mul 1574 131 1574; Sub 1060 1060 1574; Mul 1671 325 1671; Mul 1574 337 1354;
  Add 1671 1671 1574; Sub 1671 1060 1671; Mul 1574 333 1671; Add 1296 1651 1574; Sub 1365 1365 1296;
  Mul 1296 354 1425; Mul 1281 329 1188; Add 1129 1296 1281; Mul 1550 325 1243; Mul 1121 346 1354;
  Add 1597 1550 1121; Add 1129 1129 1597; Mul 1597 1390 1354; Add 1191 1191 1597; Mul 1191 323 1191;
  Add 1191 1177 1191; Mul 1511 312 1191; Mul 1289 579 1375; Add 1338 1511 1289; Mul 1582 588 1227;
  Mul 1480 213 1688; Mul 1361 338 1480; Add 1300 1582 1361; Sub 1338 1338 1300; Add 1129 1129 1338;
  Sub 1365 1365 1129; Mul 1129 585 1247; Add 1338 1433 1177; Mul 1300 309 1338; Sub 1129 1129 1300;
  Mul 1300 332 1060; Mul 1120 583 1670; Add 1300 1300 1120; Add 1129 1129 1300; Mul 1300 349 1540;
  Mul 1120 334 1688; Add 1300 1300 1120; Add 1129 1129 1300; Mul 1300 473 1354; Mul 1120 332 1240;
  Mul 1162 336 1670; Add 1120 1120 1162; Mul 1162 309 1354; Mul 1180 325 1247; Add 1162 1162 1180;
  Sub 1120 1120 1162; Sub 1120 1207 1120; Mul 1120 323 1120; Mul 1162 325 1120; Add 1300 1300 1162;
  Mul 1162 587 1425; Mul 1180 309 1425; Mul 1312 329 1247; Add 1180 1180 1312; Mul 1312 349 1240;
  Mul 1657 336 1688; Add 1312 1312 1657; Sub 1180 1180 1312; Sub 1180 1412 1180; Mul 1180 323 1180;
  Mul 1312 329 1180; Add 1162 1162 1312; Sub 1300 1300 1162; Add 1129 1129 1300; Mul 1129 213 1129;
  Sub 1365 1365 1129; Mul 1300 594 1473; Mul 1162 368 1625; Mul 1312 39 1544; Mul 1657 373 1275;
  Add 1312 1312 1657; Add 1162 1162 1312; Mul 1312 372 1162; Mul 1657 575 1625].
Definition casadi_f0_472 : list instruction := [
  Add 1312 1312 1657; Mul 1657 39 1625; Mul 1086 376 1544; Add 1657 1657 1086; Mul 1086 377 1657;
  Mul 1544 590 1544; Add 1086 1086 1544; Add 1312 1312 1086; Mul 1086 1404 1193; Mul 1544 1405 1674;
  Add 1616 1086 1544; Mul 1616 378 1616; Add 1616 1312 1616; Mul 1179 366 1616; Add 1208 1300 1179;
  Mul 1277 597 1176; Mul 1162 358 1162; Mul 1440 575 1435; Add 1162 1162 1440; Mul 1657 364 1657;
  Mul 1679 590 1679; Add 1657 1657 1679; Add 1162 1162 1657; Mul 1185 69 1185; Add 1162 1162 1185;
  Mul 1285 381 1285; Mul 1185 392 1518; Add 1285 1285 1185; Sub 1285 1162 1285; Mul 1185 388 1285;
  Add 1657 1277 1185; Sub 1208 1208 1657; Mul 1657 409 1674; Mul 1679 384 1052; Add 1440 1657 1679;
  Mul 1523 381 1503; Mul 1112 401 1518; Add 1221 1523 1112; Add 1440 1440 1221; Mul 1221 1414 1518;
  Add 1086 1086 1221; Mul 1086 378 1086; Add 1086 1102 1086; Mul 1583 366 1086; Mul 1051 592 1473;
  Add 1403 1583 1051; Mul 1223 601 1362; Mul 1124 213 1318; Mul 1370 393 1124; Add 1398 1223 1370;
  Sub 1403 1403 1398; Add 1440 1440 1403; Sub 1208 1208 1440; Mul 1440 598 1666; Add 1403 1312 1102;
  Mul 1398 363 1403; Sub 1440 1440 1398; Mul 1398 387 1162; Mul 1673 596 1025; Add 1398 1398 1673;
  Add 1440 1440 1398; Mul 1398 405 1225; Mul 1673 389 1318; Add 1398 1398 1673; Add 1440 1440 1398;
  Mul 1398 475 1518; Mul 1673 387 1193; Mul 1348 391 1025; Add 1673 1673 1348; Mul 1348 363 1518;
  Mul 1152 381 1666; Add 1348 1348 1152; Sub 1673 1673 1348; Sub 1673 1047 1673; Mul 1673 378 1673;
  Mul 1348 381 1673; Add 1398 1398 1348; Mul 1348 600 1674; Mul 1152 363 1674; Mul 1215 384 1666;
  Add 1152 1152 1215; Mul 1215 405 1193; Mul 1417 391 1318; Add 1215 1215 1417; Sub 1152 1152 1215;
  Sub 1152 1314 1152; Mul 1152 378 1152; Mul 1215 384 1152; Add 1348 1348 1215; Sub 1398 1398 1348;
  Add 1440 1440 1398; Mul 1440 213 1440; Sub 1208 1208 1440; Mul 1398 607 1476; Mul 1348 423 1625;
  Mul 1215 40 1201; Mul 1417 42 1244; Add 1215 1215 1417; Add 1348 1348 1215; Mul 1215 372 1348;
  Mul 1417 589 1625; Add 1215 1215 1417; Mul 1417 40 1625; Mul 1541 14 1201; Mul 1244 18 1244;
  Add 1541 1541 1244; Add 1417 1417 1541; Mul 1541 429 1417; Mul 1201 603 1201; Add 1541 1541 1201;
  Add 1215 1215 1541; Mul 1541 1428 1449; Mul 1201 1264 1087; Add 1244 1541 1201; Mul 1244 430 1244;
  Add 1244 1215 1244; Mul 1605 420 1244; Add 1551 1398 1605; Mul 1380 610 1378; Mul 1348 358 1348;
  Mul 1432 589 1435; Add 1348 1348 1432; Mul 1417 418 1417; Mul 1438 603 1438; Add 1417 1417 1438;
  Add 1348 1348 1417; Mul 1183 43 1183; Mul 1417 431 1423; Sub 1183 1183 1417; Add 1348 1348 1183;
  Mul 1458 434 1458; Mul 1183 446 1457; Add 1458 1458 1183; Sub 1458 1348 1458; Mul 1183 442 1458;
  Add 1417 1380 1183; Sub 1551 1551 1417; Mul 1417 463 1087; Mul 1438 438 1278; Add 1432 1417 1438;
  Mul 1654 434 1608; Mul 1297 455 1457; Add 1310 1654 1297; Add 1432 1432 1310; Mul 1310 1437 1457;
  Add 1541 1541 1310; Mul 1541 430 1541; Add 1541 1089 1541; Mul 1321 420 1541].
Definition casadi_f0_473 : list instruction := [
  Mul 1547 605 1476; Add 1496 1321 1547; Mul 1107 614 1564; Mul 1431 213 1200; Mul 1274 447 1431;
  Add 1084 1107 1274; Sub 1496 1496 1084; Add 1432 1432 1496; Sub 1551 1551 1432; Mul 1432 13 1696;
  Add 1496 1215 1089; Mul 1084 417 1496; Sub 1432 1432 1084; Mul 1084 441 1348; Mul 1182 609 1689;
  Add 1084 1084 1182; Add 1432 1432 1084; Mul 1084 459 1062; Mul 1182 443 1200; Add 1084 1084 1182;
  Add 1432 1432 1084; Mul 1084 477 1457; Mul 1182 441 1449; Mul 1466 445 1689; Add 1182 1182 1466;
  Mul 1466 417 1457; Mul 1257 434 1696; Add 1466 1466 1257; Sub 1182 1182 1466; Sub 1182 1646 1182;
  Mul 1182 430 1182; Mul 1466 434 1182; Add 1084 1084 1466; Mul 1466 611 1087; Mul 1257 417 1087;
  Mul 1389 438 1696; Add 1257 1257 1389; Mul 1389 459 1449; Mul 1204 445 1200; Add 1389 1389 1204;
  Sub 1257 1257 1389; Sub 1257 1395 1257; Mul 1257 430 1257; Mul 1389 438 1257; Add 1466 1466 1389;
  Sub 1084 1084 1466; Add 1432 1432 1084; Mul 1432 213 1432; Sub 1551 1551 1432; Add 1208 1208 1551;
  Add 1365 1365 1208; Add 1455 1455 1365; Add 1579 1579 1455; Mul 1579 216 1579; Mul 1084 554 1148;
  Sub 1579 1579 1084; Mul 1084 242 1445; Mul 1466 230 1104; Sub 1084 1084 1466; Mul 1466 560 1115;
  Mul 1389 248 1604; Add 1204 1466 1389; Mul 1680 244 1680; Mul 1218 551 1099; Add 1384 1680 1218;
  Sub 1204 1204 1384; Sub 1204 1084 1204; Mul 1384 556 1145; Mul 1515 249 1194; Add 1698 1384 1515;
  Mul 1520 558 1099; Sub 1634 1634 1037; Mul 1634 212 1634; Add 1634 1652 1634; Mul 1037 244 1634;
  Add 1642 1520 1037; Sub 1698 1698 1642; Add 1204 1204 1698; Mul 1698 219 1263; Mul 1642 555 1456;
  Add 1698 1698 1642; Mul 1642 227 1650; Mul 1213 550 1699; Add 1642 1642 1213; Add 1698 1698 1642;
  Mul 1642 525 1123; Mul 1213 246 1383; Add 1642 1642 1213; Add 1698 1698 1642; Mul 1642 231 1116;
  Mul 1213 340 1602; Sub 1642 1642 1213; Mul 1213 525 1167; Mul 1258 225 1383; Add 1213 1213 1258;
  Mul 1258 242 1699; Mul 1684 227 1104; Sub 1258 1258 1684; Sub 1213 1213 1258; Add 1213 1450 1213;
  Mul 1213 212 1213; Mul 1258 242 1213; Mul 1684 616 1104; Sub 1258 1258 1684; Sub 1642 1642 1258;
  Add 1698 1698 1642; Mul 1698 213 1698; Add 1204 1204 1698; Mul 1642 570 1036; Mul 1258 258 1585;
  Add 1684 1642 1258; Mul 1386 572 1076; Add 1501 1501 1533; Mul 1501 269 1501; Sub 1501 1501 1327;
  Mul 1533 279 1501; Add 1119 1386 1533; Sub 1684 1684 1119; Mul 1119 297 1356; Mul 1556 275 1324;
  Add 1538 1119 1556; Mul 1465 282 1545; Mul 1248 292 1353; Add 1453 1465 1248; Add 1538 1538 1453;
  Mul 1453 574 1668; Mul 1633 276 1192; Add 1697 1453 1633; Mul 1140 279 1140; Mul 1372 565 1076;
  Add 1203 1140 1372; Sub 1697 1697 1203; Add 1538 1538 1697; Sub 1684 1684 1538; Mul 1538 255 1447;
  Mul 1697 569 1279; Add 1538 1538 1697; Mul 1697 278 1369; Mul 1203 564 1546; Add 1697 1697 1203;
  Add 1538 1538 1697; Mul 1697 296 1261; Mul 1203 266 1351; Add 1697 1697 1203; Add 1538 1538 1697;
  Mul 1697 617 1356; Mul 1203 296 1236; Mul 1137 271 1351; Add 1203 1203 1137].
Definition casadi_f0_474 : list instruction := [
  Mul 1137 278 1356; Mul 1529 275 1546; Add 1137 1137 1529; Sub 1203 1203 1137; Sub 1203 1077 1203;
  Mul 1203 269 1203; Mul 1137 275 1203; Add 1697 1697 1137; Mul 1137 471 1353; Mul 1529 282 1418;
  Add 1137 1137 1529; Sub 1697 1697 1137; Add 1538 1538 1697; Mul 1538 213 1538; Add 1684 1684 1538;
  Mul 1697 584 1375; Mul 1137 312 1671; Add 1529 1697 1137; Mul 1664 586 1022; Add 1597 1597 1656;
  Mul 1597 323 1597; Sub 1597 1597 1338; Mul 1656 333 1597; Add 1421 1664 1656; Sub 1529 1529 1421;
  Mul 1421 351 1425; Mul 1477 329 1302; Add 1570 1421 1477; Mul 1399 336 1243; Mul 1575 346 1240;
  Add 1079 1399 1575; Add 1570 1570 1079; Mul 1079 588 1543; Mul 1469 330 1480; Add 1090 1079 1469;
  Mul 1191 333 1191; Mul 1507 579 1022; Add 1320 1191 1507; Sub 1090 1090 1320; Add 1570 1570 1090;
  Sub 1529 1529 1570; Mul 1570 309 1060; Mul 1090 583 1247; Add 1570 1570 1090; Mul 1090 332 1433;
  Mul 1320 578 1670; Add 1090 1090 1320; Add 1570 1570 1090; Mul 1090 349 1643; Mul 1320 320 1688;
  Add 1090 1090 1320; Add 1570 1570 1090; Mul 1090 619 1425; Mul 1320 349 1354; Mul 1175 325 1688;
  Add 1320 1320 1175; Mul 1175 332 1425; Mul 1536 329 1670; Add 1175 1175 1536; Sub 1320 1320 1175;
  Sub 1320 1481 1320; Mul 1320 323 1320; Mul 1175 329 1320; Add 1090 1090 1175; Mul 1175 473 1240;
  Mul 1536 336 1120; Add 1175 1175 1536; Sub 1090 1090 1175; Add 1570 1570 1090; Mul 1570 213 1570;
  Add 1529 1529 1570; Mul 1090 597 1473; Mul 1175 366 1285; Add 1536 1090 1175; Mul 1359 599 1176;
  Add 1221 1221 1544; Mul 1221 378 1221; Sub 1221 1221 1403; Mul 1544 388 1221; Add 1132 1359 1544;
  Sub 1536 1536 1132; Mul 1132 406 1674; Mul 1287 384 1147; Add 1255 1132 1287; Mul 1391 391 1503;
  Mul 1330 401 1193; Add 1219 1391 1330; Add 1255 1255 1219; Mul 1219 601 1151; Mul 1341 385 1124;
  Add 1196 1219 1341; Mul 1086 388 1086; Mul 1506 592 1176; Add 1675 1086 1506; Sub 1196 1196 1675;
  Add 1255 1255 1196; Sub 1536 1536 1255; Mul 1255 363 1162; Mul 1196 596 1666; Add 1255 1255 1196;
  Mul 1196 387 1312; Mul 1675 591 1025; Add 1196 1196 1675; Add 1255 1255 1196; Mul 1196 405 1639;
  Mul 1675 374 1318; Add 1196 1196 1675; Add 1255 1255 1196; Mul 1196 621 1674; Mul 1675 405 1518;
  Mul 1622 381 1318; Add 1675 1675 1622; Mul 1622 387 1674; Mul 1571 384 1025; Add 1622 1622 1571;
  Sub 1675 1675 1622; Sub 1675 1460 1675; Mul 1675 378 1675; Mul 1622 384 1675; Add 1196 1196 1622;
  Mul 1622 475 1193; Mul 1571 391 1673; Add 1622 1622 1571; Sub 1196 1196 1622; Add 1255 1255 1196;
  Mul 1255 213 1255; Add 1536 1536 1255; Mul 1196 610 1476; Mul 1622 420 1458; Add 1571 1196 1622;
  Mul 1645 612 1378; Add 1310 1310 1201; Mul 1310 430 1310; Sub 1310 1310 1496; Mul 1201 442 1310;
  Add 1096 1645 1201; Sub 1571 1571 1096; Mul 1096 460 1087; Mul 1088 438 1206; Add 1231 1096 1088;
  Mul 1563 445 1608; Mul 1376 455 1449; Add 1505 1563 1376; Add 1231 1231 1505; Mul 1505 614 1111;
  Mul 1406 439 1431; Add 1267 1505 1406; Mul 1541 442 1541; Mul 1691 605 1378].
Definition casadi_f0_475 : list instruction := [
  Add 1387 1541 1691; Sub 1267 1267 1387; Add 1231 1231 1267; Sub 1571 1571 1231; Mul 1231 417 1348;
  Mul 1267 609 1696; Add 1231 1231 1267; Mul 1267 441 1215; Mul 1387 604 1689; Add 1267 1267 1387;
  Add 1231 1231 1267; Mul 1267 459 1360; Mul 1387 426 1200; Add 1267 1267 1387; Add 1231 1231 1267;
  Mul 1267 623 1087; Mul 1387 459 1457; Mul 1081 434 1200; Add 1387 1387 1081; Mul 1081 441 1087;
  Mul 1156 438 1689; Add 1081 1081 1156; Sub 1387 1387 1081; Sub 1387 1620 1387; Mul 1387 430 1387;
  Mul 1081 438 1387; Add 1267 1267 1081; Mul 1081 477 1449; Mul 1156 445 1182; Add 1081 1081 1156;
  Sub 1267 1267 1081; Add 1231 1231 1267; Mul 1231 213 1231; Add 1571 1571 1231; Add 1536 1536 1571;
  Add 1529 1529 1536; Add 1684 1684 1529; Add 1204 1204 1684; Mul 1204 215 1204; Mul 1267 613 1580;
  Add 1204 1204 1267; Sub 1579 1579 1204; Mul 1204 212 1145; Mul 1267 242 1204; Mul 1081 624 1104;
  Sub 1267 1267 1081; Mul 1081 212 1604; Mul 1156 231 1081; Mul 1494 626 1602; Sub 1156 1156 1494;
  Add 1156 1317 1156; Sub 1267 1267 1156; Mul 1156 213 1413; Add 1494 1267 1156; Mul 1479 269 1036;
  Mul 1402 275 1479; Mul 1239 629 1356; Add 1422 1402 1239; Mul 1588 631 1353; Mul 1495 269 1192;
  Mul 1672 282 1495; Add 1554 1588 1672; Add 1554 1232 1554; Sub 1422 1422 1554; Mul 1554 213 1607;
  Add 1631 1422 1554; Mul 1333 323 1375; Mul 1401 329 1333; Mul 1590 634 1425; Add 1489 1401 1590;
  Mul 1526 636 1240; Mul 1542 323 1480; Mul 1411 336 1542; Add 1374 1526 1411; Add 1374 1188 1374;
  Sub 1489 1489 1374; Mul 1374 213 1180; Add 1555 1489 1374; Mul 1471 378 1473; Mul 1347 384 1471;
  Mul 1131 639 1674; Add 1565 1347 1131; Mul 1181 641 1193; Mul 1144 378 1124; Mul 1599 391 1144;
  Add 1280 1181 1599; Add 1280 1052 1280; Sub 1565 1565 1280; Mul 1280 213 1152; Add 1416 1565 1280;
  Mul 1295 430 1476; Mul 1272 438 1295; Mul 1034 644 1087; Add 1659 1272 1034; Mul 1125 646 1449;
  Mul 1487 430 1431; Mul 1254 445 1487; Add 1700 1125 1254; Add 1700 1278 1700; Sub 1659 1659 1700;
  Mul 1700 213 1257; Add 1548 1659 1700; Add 1416 1416 1548; Add 1555 1555 1416; Add 1631 1631 1555;
  Add 1494 1494 1631; Mul 1494 540 1494; Mul 1436 628 1313; Sub 1494 1494 1436; Mul 1436 212 1099;
  Mul 1017 242 1436; Mul 1463 650 1104; Sub 1017 1017 1463; Mul 1463 626 1167; Mul 1229 225 1081;
  Add 1463 1463 1229; Add 1463 1445 1463; Sub 1017 1017 1463; Mul 1463 213 1213; Add 1229 1017 1463;
  Mul 1016 631 1236; Mul 1305 271 1495; Add 1576 1016 1305; Sub 1576 1324 1576; Mul 1658 269 1076;
  Mul 1464 275 1658; Mul 1665 655 1356; Add 1444 1464 1665; Add 1576 1576 1444; Mul 1444 213 1203;
  Sub 1271 1576 1444; Mul 1539 636 1354; Mul 1434 325 1542; Add 1337 1539 1434; Sub 1337 1302 1337;
  Mul 1343 323 1022; Mul 1042 329 1343; Mul 1110 659 1425; Add 1142 1042 1110; Add 1337 1337 1142;
  Mul 1142 213 1320; Sub 1584 1337 1142; Mul 1228 641 1518; Mul 1415 381 1144; Add 1692 1228 1415;
  Sub 1692 1147 1692; Mul 1211 378 1176; Mul 1141 384 1211; Mul 1454 663 1674].
Definition casadi_f0_476 : list instruction := [
  Add 1308 1141 1454; Add 1692 1692 1308; Mul 1308 213 1675; Sub 1238 1692 1308; Mul 1527 646 1457;
  Mul 1071 434 1487; Add 1394 1527 1071; Sub 1394 1206 1394; Mul 1335 430 1378; Mul 1108 438 1335;
  Mul 1617 667 1087; Add 1127 1108 1617; Add 1394 1394 1127; Mul 1127 213 1387; Sub 1345 1394 1127;
  Add 1238 1238 1345; Add 1584 1584 1238; Add 1271 1271 1584; Add 1229 1229 1271; Mul 1229 544 1229;
  Mul 1210 653 1049; Add 1229 1229 1210; Add 1494 1494 1229; Sub 1579 1579 1494; Add 1326 1326 1579;
  Mul 1326 1 1326; Mul 1579 509 1323; Add 1326 1326 1579; Add 1259 1259 1326; Mul 1326 602 1537;
  Mul 1579 216 1351; Mul 1494 296 1148; Sub 1579 1579 1494; Mul 1494 517 1579; Add 1326 1326 1494;
  Mul 1494 670 1146; Mul 1229 215 1351; Mul 1210 296 1580; Add 1229 1229 1210; Mul 1210 532 1229;
  Add 1494 1494 1210; Add 1326 1326 1494; Mul 1349 671 1349; Mul 1494 216 1279; Mul 1210 255 1148;
  Sub 1494 1494 1210; Mul 1210 215 1546; Mul 1339 278 1580; Add 1210 1210 1339; Add 1494 1494 1210;
  Mul 1210 492 1494; Add 1349 1349 1210; Sub 1326 1326 1349; Mul 1349 675 1653; Mul 1210 215 1032;
  Mul 1339 290 1580; Add 1210 1210 1339; Mul 1339 674 1351; Mul 1143 216 1694; Mul 1166 274 1148;
  Add 1143 1143 1166; Mul 1166 296 1143; Sub 1339 1339 1166; Mul 1166 676 1279; Mul 1315 215 1315;
  Mul 1606 270 1580; Add 1315 1315 1606; Mul 1648 216 1648; Mul 1606 281 1148; Add 1648 1648 1606;
  Sub 1315 1315 1648; Mul 1648 255 1315; Add 1166 1166 1648; Add 1339 1339 1166; Add 1210 1210 1339;
  Mul 1339 602 1522; Mul 1166 523 1579; Add 1339 1339 1166; Mul 1166 671 1653; Mul 1648 502 1494;
  Add 1166 1166 1648; Add 1339 1339 1166; Sub 1339 1210 1339; Mul 1339 672 1339; Mul 1166 502 1339;
  Add 1349 1349 1166; Mul 1166 679 1611; Mul 1032 216 1032; Mul 1648 290 1148; Sub 1032 1032 1648;
  Mul 1648 676 1546; Mul 1606 278 1315; Add 1648 1648 1606; Mul 1606 680 1351; Mul 1667 274 1580;
  Mul 1694 215 1694; Sub 1667 1667 1694; Mul 1694 296 1667; Add 1606 1606 1694; Add 1648 1648 1606;
  Sub 1032 1032 1648; Mul 1648 671 1611; Mul 1606 505 1494; Add 1648 1648 1606; Mul 1606 670 1522;
  Mul 1694 523 1229; Add 1606 1606 1694; Add 1648 1648 1606; Add 1648 1032 1648; Mul 1648 672 1648;
  Mul 1606 505 1648; Add 1166 1166 1606; Sub 1349 1349 1166; Add 1326 1326 1349; Mul 1631 674 1631;
  Mul 1349 633 1143; Sub 1631 1631 1349; Mul 1271 680 1271; Mul 1349 657 1667; Add 1271 1271 1349;
  Mul 1495 275 1495; Mul 1356 631 1356; Add 1349 1495 1356; Mul 1166 629 1353; Mul 1606 282 1479;
  Add 1694 1166 1606; Mul 1641 655 1236; Mul 1497 271 1658; Add 1091 1641 1497; Add 1356 1356 1495;
  Add 1495 1091 1356; Add 1694 1694 1495; Sub 1482 1349 1694; Add 1606 1606 1166; Add 1497 1497 1641;
  Add 1349 1497 1349; Add 1606 1606 1349; Sub 1356 1356 1606; Sub 1482 1482 1356; Mul 1542 329 1542;
  Mul 1425 636 1425; Add 1356 1542 1425; Mul 1641 634 1240; Mul 1166 336 1333; Add 1122 1641 1166;
  Mul 1618 659 1354; Mul 1329 325 1343; Add 1319 1618 1329; Add 1425 1425 1542].
Definition casadi_f0_477 : list instruction := [
  Add 1542 1319 1425; Add 1122 1122 1542; Sub 1149 1356 1122; Add 1166 1166 1641; Add 1329 1329 1618;
  Add 1356 1329 1356; Add 1166 1166 1356; Sub 1425 1425 1166; Sub 1149 1149 1425; Mul 1144 384 1144;
  Mul 1674 641 1674; Add 1425 1144 1674; Mul 1618 639 1193; Mul 1641 391 1471; Add 1474 1618 1641;
  Mul 1358 663 1518; Mul 1368 381 1211; Add 1268 1358 1368; Add 1674 1674 1144; Add 1144 1268 1674;
  Add 1474 1474 1144; Sub 1492 1425 1474; Add 1641 1641 1618; Add 1368 1368 1358; Add 1425 1368 1425;
  Add 1641 1641 1425; Sub 1674 1674 1641; Sub 1492 1492 1674; Mul 1487 438 1487; Mul 1674 646 1087;
  Add 1358 1487 1674; Mul 1618 644 1449; Mul 1686 445 1295; Add 1363 1618 1686; Mul 1388 667 1457;
  Mul 1640 434 1335; Add 1130 1388 1640; Add 1674 1674 1487; Add 1487 1130 1674; Add 1363 1363 1487;
  Sub 1352 1358 1363; Add 1686 1686 1618; Add 1640 1640 1388; Add 1358 1640 1358; Add 1686 1686 1358;
  Sub 1674 1674 1686; Sub 1352 1352 1674; Add 1492 1492 1352; Add 1149 1149 1492; Add 1482 1482 1149;
  Mul 1482 676 1482; Mul 1674 687 1315; Add 1388 1482 1674; Sub 1271 1271 1388; Add 1631 1631 1271;
  Mul 1684 215 1684; Mul 1271 552 1580; Add 1684 1684 1271; Mul 1455 216 1455; Mul 1271 568 1148;
  Sub 1455 1455 1271; Sub 1684 1684 1455; Add 1631 1631 1684; Add 1326 1326 1631; Mul 1326 2 1326;
  Mul 1631 649 1488; Add 1326 1326 1631; Add 1259 1259 1326; Mul 1559 677 1559; Mul 1326 216 1247;
  Mul 1631 309 1148; Sub 1326 1326 1631; Mul 1631 215 1670; Mul 1684 332 1580; Add 1631 1631 1684;
  Add 1326 1326 1631; Mul 1631 484 1326; Add 1559 1559 1631; Mul 1631 706 1288; Mul 1684 216 1688;
  Mul 1455 349 1148; Sub 1684 1684 1455; Mul 1455 513 1684; Add 1631 1631 1455; Mul 1455 712 1082;
  Mul 1271 215 1688; Mul 1388 349 1580; Add 1271 1271 1388; Mul 1388 530 1271; Add 1455 1455 1388;
  Add 1631 1631 1455; Sub 1559 1559 1631; Mul 1631 711 1621; Mul 1455 706 1172; Mul 1388 519 1684;
  Add 1455 1455 1388; Mul 1388 677 1621; Mul 1618 494 1326; Add 1388 1388 1618; Add 1455 1455 1388;
  Mul 1388 215 1207; Mul 1618 344 1580; Add 1388 1388 1618; Mul 1618 714 1688; Mul 1677 216 1216;
  Mul 1074 328 1148; Sub 1677 1677 1074; Mul 1074 349 1677; Add 1618 1618 1074; Mul 1074 716 1247;
  Mul 1535 216 1535; Mul 1251 335 1148; Sub 1535 1535 1251; Mul 1187 215 1187; Mul 1251 324 1580;
  Add 1187 1187 1251; Add 1535 1535 1187; Mul 1187 309 1535; Add 1074 1074 1187; Add 1618 1618 1074;
  Add 1388 1388 1618; Sub 1455 1455 1388; Mul 1455 156 1455; Mul 1618 494 1455; Add 1631 1631 1618;
  Mul 1618 719 1609; Mul 1074 716 1670; Mul 1187 332 1535; Add 1074 1074 1187; Mul 1187 718 1688;
  Mul 1216 215 1216; Mul 1251 328 1580; Add 1216 1216 1251; Mul 1251 349 1216; Add 1187 1187 1251;
  Add 1074 1074 1187; Mul 1207 216 1207; Mul 1187 344 1148; Sub 1207 1207 1187; Sub 1074 1074 1207;
  Mul 1207 677 1609; Mul 1187 497 1326; Add 1207 1207 1187; Mul 1187 712 1172; Mul 1251 519 1271;
  Add 1187 1187 1251; Add 1207 1207 1187; Sub 1207 1074 1207; Mul 1207 156 1207].
Definition casadi_f0_478 : list instruction := [
  Mul 1187 497 1207; Add 1618 1618 1187; Sub 1631 1631 1618; Add 1559 1559 1631; Mul 1149 716 1149;
  Mul 1631 694 1535; Add 1618 1149 1631; Mul 1584 718 1584; Mul 1187 661 1216; Add 1584 1584 1187;
  Sub 1618 1618 1584; Mul 1555 714 1555; Mul 1584 638 1677; Add 1555 1555 1584; Sub 1618 1618 1555;
  Mul 1365 216 1365; Mul 1555 582 1148; Sub 1365 1365 1555; Mul 1529 215 1529; Mul 1555 618 1580;
  Add 1529 1529 1555; Sub 1365 1365 1529; Add 1618 1618 1365; Add 1559 1559 1618; Mul 1559 3 1559;
  Mul 1618 681 1655; Add 1559 1559 1618; Add 1259 1259 1559; Mul 1559 715 1701; Mul 1618 327 1318;
  Mul 1365 405 1275; Add 1618 1618 1365; Mul 1365 318 1025; Mul 1529 387 1687; Add 1365 1365 1529;
  Sub 1618 1618 1365; Mul 1365 510 1618; Add 1559 1559 1365; Mul 1365 721 1577; Mul 1529 318 1666;
  Mul 1555 363 1687; Add 1529 1529 1555; Mul 1555 310 1318; Mul 1584 405 1628; Add 1555 1555 1584;
  Sub 1529 1529 1555; Mul 1555 528 1529; Add 1365 1365 1555; Add 1559 1559 1365; Mul 1365 722 1409;
  Mul 1555 310 1025; Mul 1584 387 1628; Add 1555 1555 1584; Mul 1584 327 1666; Mul 1187 363 1275;
  Add 1584 1584 1187; Sub 1555 1555 1584; Mul 1584 479 1555; Add 1365 1365 1584; Add 1559 1559 1365;
  Mul 1365 726 1525; Mul 1584 318 1460; Mul 1187 404 1687; Add 1584 1584 1187; Mul 1187 310 1047;
  Mul 1251 399 1628; Add 1187 1187 1251; Sub 1584 1584 1187; Mul 1187 725 1318; Mul 1251 327 1509;
  Mul 1237 383 1275; Add 1251 1251 1237; Mul 1237 318 1627; Mul 1113 379 1687; Add 1237 1237 1113;
  Sub 1251 1251 1237; Mul 1237 405 1251; Add 1187 1187 1237; Mul 1237 727 1666; Mul 1627 310 1627;
  Mul 1113 379 1628; Add 1627 1627 1113; Mul 1113 327 1573; Mul 1586 390 1275; Add 1113 1113 1586;
  Sub 1627 1627 1113; Mul 1113 363 1627; Add 1237 1237 1113; Sub 1187 1187 1237; Add 1584 1584 1187;
  Mul 1187 715 1502; Mul 1237 515 1618; Add 1187 1187 1237; Mul 1237 722 1525; Mul 1113 486 1555;
  Add 1237 1237 1113; Sub 1187 1187 1237; Sub 1187 1584 1187; Mul 1187 723 1187; Mul 1237 486 1187;
  Add 1365 1365 1237; Mul 1237 730 1662; Mul 1047 327 1047; Mul 1113 399 1275; Add 1047 1047 1113;
  Mul 1113 318 1314; Mul 1586 408 1687; Add 1113 1113 1586; Sub 1047 1047 1113; Mul 1113 727 1025;
  Mul 1586 387 1627; Add 1113 1113 1586; Mul 1586 731 1318; Mul 1573 318 1573; Mul 1512 390 1687;
  Add 1573 1573 1512; Mul 1509 310 1509; Mul 1512 383 1628; Add 1509 1509 1512; Sub 1573 1573 1509;
  Mul 1509 405 1573; Add 1586 1586 1509; Sub 1113 1113 1586; Add 1047 1047 1113; Mul 1113 722 1662;
  Mul 1586 489 1555; Add 1113 1113 1586; Mul 1586 721 1502; Mul 1509 515 1529; Add 1586 1586 1509;
  Sub 1113 1113 1586; Sub 1113 1047 1113; Mul 1113 723 1113; Mul 1586 489 1113; Add 1237 1237 1586;
  Sub 1365 1365 1237; Add 1559 1559 1365; Mul 1365 725 1416; Mul 1237 643 1251; Add 1365 1365 1237;
  Mul 1237 731 1238; Mul 1586 665 1573; Add 1237 1237 1586; Mul 1586 727 1492; Mul 1509 701 1627;
  Add 1512 1586 1509; Add 1237 1237 1512; Add 1365 1365 1237; Mul 1237 310 1536].
Definition casadi_f0_479 : list instruction := [
  Mul 1512 620 1628; Add 1237 1237 1512; Mul 1512 327 1208; Mul 1693 595 1275; Add 1512 1512 1693;
  Mul 1427 318 1427; Mul 1693 395 1687; Add 1644 1427 1693; Add 1512 1512 1644; Add 1237 1237 1512;
  Sub 1365 1365 1237; Add 1559 1559 1365; Mul 1365 4 1559; Mul 1237 720 1168; Add 1365 1365 1237;
  Add 1259 1259 1365; Mul 1365 728 1062; Mul 1237 372 1200; Mul 1512 459 1625; Add 1237 1237 1512;
  Mul 1512 369 1689; Mul 1644 441 1423; Add 1512 1512 1644; Sub 1237 1237 1512; Mul 1512 443 1237;
  Add 1365 1365 1512; Mul 1512 733 1360; Mul 1644 369 1696; Mul 1097 417 1423; Add 1644 1644 1097;
  Mul 1097 358 1200; Mul 1373 459 1435; Add 1097 1097 1373; Sub 1644 1644 1097; Mul 1097 426 1644;
  Add 1512 1512 1097; Add 1365 1365 1512; Mul 1512 734 1089; Mul 1097 358 1689; Mul 1373 441 1435;
  Add 1097 1097 1373; Mul 1373 372 1696; Mul 1448 417 1625; Add 1373 1373 1448; Sub 1097 1097 1373;
  Mul 1373 478 1097; Add 1512 1512 1373; Add 1365 1365 1512; Mul 1512 735 1449; Mul 1373 369 1620;
  Mul 1448 458 1423; Add 1373 1373 1448; Mul 1448 358 1646; Mul 1561 451 1435; Add 1448 1448 1561;
  Sub 1373 1373 1448; Mul 1448 736 1200; Mul 1561 372 1593; Mul 1241 437 1625; Add 1561 1561 1241;
  Mul 1241 369 1311; Mul 1303 432 1423; Add 1241 1241 1303; Sub 1561 1561 1241; Mul 1241 459 1561;
  Add 1448 1448 1241; Mul 1241 738 1696; Mul 1311 358 1311; Mul 1303 432 1435; Add 1311 1311 1303;
  Mul 1303 372 1393; Mul 1407 444 1625; Add 1303 1303 1407; Sub 1311 1311 1303; Mul 1303 417 1311;
  Add 1241 1241 1303; Sub 1448 1448 1241; Add 1373 1373 1448; Mul 1448 728 1087; Mul 1241 438 1237;
  Add 1448 1448 1241; Mul 1241 734 1449; Mul 1303 445 1097; Add 1241 1241 1303; Sub 1448 1448 1241;
  Sub 1373 1373 1448; Mul 1373 430 1373; Mul 1448 445 1373; Add 1512 1512 1448; Mul 1448 739 1457;
  Mul 1646 372 1646; Mul 1241 451 1625; Add 1646 1646 1241; Mul 1241 369 1395; Mul 1303 462 1423;
  Add 1241 1241 1303; Sub 1646 1646 1241; Mul 1241 738 1689; Mul 1303 441 1311; Add 1241 1241 1303;
  Mul 1303 741 1200; Mul 1393 369 1393; Mul 1407 444 1423; Add 1393 1393 1407; Mul 1593 358 1593;
  Mul 1407 437 1435; Add 1593 1593 1407; Sub 1393 1393 1593; Mul 1593 459 1393; Add 1303 1303 1593;
  Sub 1241 1241 1303; Add 1646 1646 1241; Mul 1241 734 1457; Mul 1303 434 1097; Add 1241 1241 1303;
  Mul 1303 733 1087; Mul 1593 438 1644; Add 1303 1303 1593; Sub 1241 1241 1303; Sub 1646 1646 1241;
  Mul 1646 430 1646; Mul 1241 434 1646; Add 1448 1448 1241; Sub 1512 1512 1448; Add 1365 1365 1512;
  Mul 1512 736 1548; Mul 1448 648 1561; Add 1512 1512 1448; Mul 1448 741 1345; Mul 1241 669 1393;
  Add 1448 1448 1241; Mul 1241 738 1352; Mul 1303 708 1311; Add 1593 1241 1303; Add 1448 1448 1593;
  Add 1512 1512 1448; Mul 1448 358 1571; Mul 1593 622 1435; Add 1448 1448 1593; Mul 1593 372 1551;
  Mul 1407 608 1625; Add 1593 1593 1407; Mul 1572 369 1572; Mul 1407 449 1423; Add 1202 1572 1407;
  Add 1593 1593 1202; Add 1448 1448 1593; Sub 1512 1512 1448; Add 1365 1365 1512].
Definition casadi_f0_480 : list instruction := [
  Mul 1512 5 1365; Mul 1448 732 1578; Add 1512 1512 1448; Add 1259 1259 1512; Mul 1512 286 1483;
  Mul 1448 212 1512; Mul 1448 107 1448; Mul 1593 745 1594; Mul 1202 737 1594; Mul 1663 9 1512;
  Add 1202 1202 1663; Mul 1663 743 1126; Mul 1103 286 1307; Mul 1269 8 1103; Add 1663 1663 1269;
  Sub 1202 1202 1663; Mul 1663 269 1202; Mul 1269 81 1663; Mul 1157 746 1165; Mul 1430 743 1594;
  Mul 1392 9 1103; Sub 1430 1430 1392; Mul 1512 8 1512; Mul 1392 737 1126; Sub 1512 1512 1392;
  Sub 1430 1430 1512; Mul 1512 53 1430; Add 1157 1157 1512; Mul 1512 66 1202; Mul 1392 742 1158;
  Sub 1512 1512 1392; Add 1157 1157 1512; Mul 1512 323 1157; Mul 1392 47 1512; Mul 1024 378 1157;
  Mul 1030 24 1024; Mul 1159 752 1382; Mul 1198 66 1430; Mul 1253 746 1158; Sub 1198 1198 1253;
  Mul 1253 742 1165; Mul 1202 53 1202; Add 1253 1253 1202; Sub 1198 1198 1253; Mul 1253 35 1198;
  Add 1159 1159 1253; Mul 1253 378 1159; Mul 1202 31 1253; Sub 1030 1030 1202; Mul 1202 753 1246;
  Mul 1100 15 1159; Add 1202 1202 1100; Mul 1100 16 1157; Mul 1098 747 1186; Sub 1100 1100 1098;
  Add 1202 1202 1100; Mul 1202 430 1202; Mul 1100 26 1202; Mul 1159 16 1159; Mul 1098 753 1186;
  Sub 1159 1159 1098; Mul 1098 747 1246; Mul 1157 15 1157; Add 1098 1098 1157; Sub 1159 1159 1098;
  Mul 1159 430 1159; Mul 1098 28 1159; Sub 1100 1100 1098; Mul 1098 16 1202; Mul 1157 755 1186;
  Sub 1098 1098 1157; Mul 1157 757 1246; Mul 1685 15 1159; Add 1157 1157 1685; Sub 1098 1098 1157;
  Mul 1157 25 1098; Mul 1685 16 1159; Mul 1101 757 1186; Sub 1685 1685 1101; Mul 1101 755 1246;
  Mul 1683 15 1202; Add 1101 1101 1683; Add 1685 1685 1101; Mul 1101 32 1685; Sub 1157 1157 1101;
  Add 1157 1100 1157; Add 1030 1030 1157; Mul 1157 19 1030; Mul 1101 751 1290; Sub 1157 1157 1101;
  Mul 1101 763 1382; Mul 1683 19 1198; Mul 1234 752 1290; Sub 1683 1683 1234; Mul 1234 378 1683;
  Mul 1632 31 1234; Mul 1053 380 1024; Sub 1632 1632 1053; Mul 1683 430 1683; Mul 1053 28 1683;
  Mul 1202 433 1202; Sub 1053 1053 1202; Mul 1202 16 1053; Mul 1429 764 1186; Sub 1202 1202 1429;
  Mul 1429 766 1246; Mul 1159 433 1159; Mul 1226 26 1683; Sub 1159 1159 1226; Mul 1226 15 1159;
  Add 1429 1429 1226; Add 1202 1202 1429; Mul 1429 32 1683; Mul 1226 198 1098; Sub 1429 1429 1226;
  Add 1202 1202 1429; Add 1632 1632 1202; Mul 1202 35 1632; Add 1101 1101 1202; Add 1157 1157 1101;
  Add 1024 1024 1098; Mul 1098 48 1024; Add 1101 1253 1685; Mul 1202 19 1101; Mul 1429 765 1290;
  Sub 1202 1202 1429; Mul 1429 768 1382; Add 1226 1234 1683; Mul 1702 35 1226; Add 1429 1429 1702;
  Sub 1202 1202 1429; Mul 1429 55 1202; Sub 1098 1098 1429; Add 1157 1157 1098; Add 1392 1392 1157;
  Mul 1157 66 1392; Mul 1098 749 1158; Sub 1157 1157 1098; Mul 1098 762 1165; Mul 1253 380 1253;
  Mul 1234 24 1234; Sub 1253 1253 1234; Mul 1159 16 1159; Mul 1186 766 1186; Sub 1159 1159 1186;
  Mul 1246 764 1246; Mul 1053 15 1053; Add 1246 1246 1053; Sub 1159 1159 1246].
Definition casadi_f0_481 : list instruction := [
  Mul 1685 198 1685; Mul 1683 25 1683; Sub 1685 1685 1683; Add 1159 1159 1685; Add 1253 1253 1159;
  Mul 1159 62 1202; Mul 1226 19 1226; Mul 1685 768 1290; Sub 1226 1226 1685; Mul 1685 765 1382;
  Mul 1101 35 1101; Add 1685 1685 1101; Add 1226 1226 1685; Mul 1685 48 1226; Sub 1159 1159 1685;
  Add 1159 1253 1159; Mul 1198 323 1198; Mul 1685 47 1198; Sub 1159 1159 1685; Mul 1685 53 1159;
  Add 1098 1098 1685; Add 1157 1157 1098; Mul 1098 86 1202; Sub 1157 1157 1098; Add 1269 1269 1157;
  Mul 1157 9 1269; Add 1593 1593 1157; Mul 1159 66 1159; Mul 1157 762 1158; Sub 1159 1159 1157;
  Mul 1157 749 1165; Mul 1392 53 1392; Add 1157 1157 1392; Sub 1159 1159 1157; Mul 1157 91 1202;
  Add 1159 1159 1157; Mul 1430 269 1430; Mul 1157 81 1430; Sub 1159 1159 1157; Mul 1157 8 1159;
  Mul 1392 758 1126; Sub 1157 1157 1392; Add 1593 1593 1157; Mul 1202 102 1202; Add 1157 1198 1226;
  Mul 1392 66 1157; Mul 1098 770 1158; Sub 1392 1392 1098; Mul 1098 772 1165; Add 1685 1512 1024;
  Mul 1101 53 1685; Add 1098 1098 1101; Add 1392 1392 1098; Add 1098 1430 1392; Mul 1101 8 1098;
  Mul 1683 773 1126; Sub 1101 1101 1683; Mul 1683 776 1594; Mul 1685 66 1685; Mul 1158 772 1158;
  Sub 1685 1685 1158; Mul 1165 770 1165; Mul 1157 53 1157; Add 1165 1165 1157; Sub 1685 1685 1165;
  Add 1165 1663 1685; Mul 1157 9 1165; Add 1683 1683 1157; Sub 1101 1101 1683; Mul 1101 108 1101;
  Sub 1202 1202 1101; Add 1593 1593 1202; Add 1448 1448 1593; Mul 1448 114 1448; Mul 1307 740 1307;
  Sub 1448 1448 1307; Mul 1483 774 1483; Mul 1269 8 1269; Mul 1307 745 1126; Sub 1269 1269 1307;
  Mul 1307 758 1594; Mul 1159 9 1159; Add 1307 1307 1159; Sub 1269 1269 1307; Mul 1594 773 1594;
  Mul 1098 9 1098; Add 1594 1594 1098; Mul 1165 8 1165; Mul 1126 776 1126; Sub 1165 1165 1126;
  Add 1594 1594 1165; Mul 1165 108 1594; Add 1269 1269 1165; Mul 1103 212 1103; Mul 1165 107 1103;
  Sub 1269 1269 1165; Mul 1269 113 1269; Add 1483 1483 1269; Sub 1448 1448 1483; Add 1259 1259 1448;
  Mul 1448 210 1259; Sub 1592 1592 1448; Div 1448 1498 92; Mul 1483 1069 1174; Sub 1448 1448 1483;
  Mul 1483 779 1448; Add 1355 1355 1344; Add 1340 1340 1222; Sub 1355 1355 1340; Add 1150 1150 1367;
  Add 1610 1610 1532; Sub 1150 1150 1610; Add 1205 1205 1150; Sub 1355 1355 1205; Add 1355 1355 1309;
  Add 1549 1549 1171; Add 1595 1595 1256; Sub 1549 1549 1595; Add 1568 1568 1139; Add 1442 1442 1695;
  Add 1568 1568 1442; Add 1400 1400 1350; Add 1209 1209 1316; Sub 1400 1400 1209; Add 1568 1568 1400;
  Sub 1549 1549 1568; Add 1549 1549 1557; Add 1361 1361 1582; Add 1289 1289 1511; Sub 1361 1361 1289;
  Add 1121 1121 1550; Add 1281 1281 1296; Add 1121 1121 1281; Add 1574 1574 1651; Add 1510 1510 1499;
  Sub 1574 1574 1510; Add 1121 1121 1574; Sub 1361 1361 1121; Add 1361 1361 1129; Add 1370 1370 1223;
  Add 1051 1051 1583; Sub 1370 1370 1051; Add 1112 1112 1523; Add 1679 1679 1657; Add 1112 1112 1679;
  Add 1185 1185 1277; Add 1179 1179 1300; Sub 1185 1185 1179; Add 1112 1112 1185].
Definition casadi_f0_482 : list instruction := [
  Sub 1370 1370 1112; Add 1370 1370 1440; Add 1274 1274 1107; Add 1547 1547 1321; Sub 1274 1274 1547;
  Add 1297 1297 1654; Add 1438 1438 1417; Add 1297 1297 1438; Add 1183 1183 1380; Add 1605 1605 1398;
  Sub 1183 1183 1605; Add 1297 1297 1183; Sub 1274 1274 1297; Add 1274 1274 1432; Add 1370 1370 1274;
  Add 1361 1361 1370; Add 1549 1549 1361; Add 1355 1355 1549; Mul 1355 216 1355; Mul 1432 780 1148;
  Sub 1355 1355 1432; Mul 1432 781 1580; Add 1037 1037 1520; Add 1515 1515 1384; Sub 1037 1037 1515;
  Sub 1084 1084 1037; Add 1218 1218 1680; Add 1389 1389 1466; Sub 1218 1218 1389; Add 1084 1084 1218;
  Sub 1084 1084 1698; Add 1372 1372 1140; Add 1633 1633 1453; Sub 1372 1372 1633; Add 1248 1248 1465;
  Add 1556 1556 1119; Add 1248 1248 1556; Add 1533 1533 1386; Add 1258 1258 1642; Sub 1533 1533 1258;
  Add 1248 1248 1533; Sub 1372 1372 1248; Sub 1372 1372 1538; Add 1507 1507 1191; Add 1469 1469 1079;
  Sub 1507 1507 1469; Add 1575 1575 1399; Add 1477 1477 1421; Add 1575 1575 1477; Add 1656 1656 1664;
  Add 1137 1137 1697; Sub 1656 1656 1137; Add 1575 1575 1656; Sub 1507 1507 1575; Sub 1507 1507 1570;
  Add 1506 1506 1086; Add 1341 1341 1219; Sub 1506 1506 1341; Add 1330 1330 1391; Add 1287 1287 1132;
  Add 1330 1330 1287; Add 1544 1544 1359; Add 1175 1175 1090; Sub 1544 1544 1175; Add 1330 1330 1544;
  Sub 1506 1506 1330; Sub 1506 1506 1255; Add 1691 1691 1541; Add 1406 1406 1505; Sub 1691 1691 1406;
  Add 1376 1376 1563; Add 1088 1088 1096; Add 1376 1376 1088; Add 1201 1201 1645; Add 1622 1622 1196;
  Sub 1201 1201 1622; Add 1376 1376 1201; Sub 1691 1691 1376; Sub 1691 1691 1231; Add 1506 1506 1691;
  Add 1507 1507 1506; Add 1372 1372 1507; Add 1084 1084 1372; Mul 1084 215 1084; Add 1432 1432 1084;
  Sub 1355 1355 1432; Sub 1267 1267 1156; Sub 1422 1422 1554; Sub 1489 1489 1374; Sub 1565 1565 1280;
  Sub 1659 1659 1700; Add 1565 1565 1659; Add 1489 1489 1565; Add 1422 1422 1489; Add 1267 1267 1422;
  Mul 1267 540 1267; Mul 1156 625 1313; Sub 1267 1267 1156; Mul 1156 651 1049; Sub 1017 1017 1463;
  Add 1576 1576 1444; Add 1337 1337 1142; Add 1692 1692 1308; Add 1394 1394 1127; Add 1692 1692 1394;
  Add 1337 1337 1692; Add 1576 1576 1337; Add 1017 1017 1576; Mul 1017 544 1017; Add 1156 1156 1017;
  Add 1267 1267 1156; Sub 1355 1355 1267; Mul 1355 0 1355; Mul 1267 23 1524; Add 1355 1355 1267;
  Mul 1459 508 1459; Mul 1267 534 1486; Add 1459 1459 1267; Add 1162 1162 1348; Mul 1478 482 1478;
  Mul 1552 511 1552; Add 1478 1478 1552; Sub 1162 1162 1478; Add 1060 1060 1162; Mul 1504 490 1504;
  Mul 1038 514 1038; Add 1504 1504 1038; Sub 1060 1060 1504; Add 1447 1447 1060; Mul 1364 498 1364;
  Mul 1567 518 1567; Add 1364 1364 1567; Sub 1447 1447 1364; Add 1263 1263 1447; Mul 1134 522 1134;
  Mul 1233 506 1233; Sub 1134 1134 1233; Sub 1263 1263 1134; Mul 1134 526 1263; Mul 1233 784 1424;
  Add 1134 1134 1233; Add 1312 1312 1215; Mul 1451 1304 1451; Add 1135 1135 1451; Mul 1135 20 1135;
  Add 1312 1312 1135; Add 1433 1433 1312; Mul 1021 1153 1021; Add 1468 1468 1021].
Definition casadi_f0_483 : list instruction := [
  Mul 1468 37 1468; Add 1433 1433 1468; Add 1369 1369 1433; Mul 1519 1212 1519; Add 1682 1682 1519;
  Mul 1682 80 1682; Add 1369 1369 1682; Add 1650 1650 1369; Mul 1106 1293 1106; Add 1452 1452 1106;
  Mul 1452 100 1452; Sub 1650 1650 1452; Mul 1650 536 1650; Mul 1452 496 1133; Add 1650 1650 1452;
  Add 1134 1134 1650; Sub 1459 1459 1134; Mul 1134 546 1346; Mul 1650 538 1638; Add 1134 1134 1650;
  Mul 1650 791 1624; Mul 1224 215 1224; Mul 1452 222 1580; Add 1224 1224 1452; Mul 1450 216 1450;
  Mul 1452 229 1148; Sub 1450 1450 1452; Sub 1224 1224 1450; Mul 1450 540 1699; Mul 1452 227 1313;
  Sub 1450 1450 1452; Mul 1452 544 1456; Mul 1682 219 1049; Add 1452 1452 1682; Sub 1450 1450 1452;
  Add 1224 1224 1450; Mul 1450 526 1587; Mul 1452 543 1424; Add 1450 1450 1452; Mul 1624 536 1624;
  Mul 1452 537 1133; Add 1624 1624 1452; Sub 1450 1450 1624; Sub 1450 1224 1450; Mul 1450 141 1450;
  Mul 1624 537 1450; Add 1650 1650 1624; Sub 1134 1134 1650; Add 1459 1459 1134; Mul 1134 556 1604;
  Mul 1194 560 1194; Add 1650 1134 1194; Sub 1128 1650 1128; Sub 1461 1470 1461; Sub 1195 1117 1195;
  Add 1461 1461 1195; Add 1194 1194 1134; Sub 1199 1199 1194; Add 1461 1461 1199; Sub 1128 1128 1461;
  Mul 1461 570 1192; Mul 1585 574 1585; Add 1199 1461 1585; Sub 1252 1199 1252; Sub 1169 1169 1513;
  Sub 1301 1301 1075; Add 1169 1169 1301; Add 1585 1585 1461; Sub 1242 1242 1585; Add 1169 1169 1242;
  Sub 1252 1252 1169; Mul 1169 584 1480; Mul 1671 588 1671; Add 1242 1169 1671; Sub 1250 1242 1250;
  Sub 1589 1589 1581; Sub 1566 1566 1562; Add 1589 1589 1566; Add 1671 1671 1169; Sub 1235 1235 1671;
  Add 1589 1589 1235; Sub 1250 1250 1589; Mul 1589 597 1124; Mul 1285 601 1285; Add 1235 1589 1285;
  Sub 1018 1235 1018; Sub 1491 1491 1190; Sub 1118 1118 1439; Add 1491 1491 1118; Add 1285 1285 1589;
  Sub 1164 1164 1285; Add 1491 1491 1164; Sub 1018 1018 1491; Mul 1491 610 1431; Mul 1458 614 1458;
  Add 1164 1491 1458; Sub 1647 1164 1647; Sub 1613 1613 1154; Sub 1649 1649 1681; Add 1613 1613 1649;
  Add 1458 1458 1491; Sub 1441 1441 1458; Add 1613 1613 1441; Sub 1647 1647 1613; Add 1018 1018 1647;
  Add 1250 1250 1018; Add 1252 1252 1250; Add 1128 1128 1252; Mul 1128 216 1128; Mul 1613 251 1148;
  Sub 1128 1128 1613; Mul 1613 230 1167; Mul 1445 225 1445; Add 1441 1613 1445; Mul 1317 231 1317;
  Mul 1491 223 1602; Sub 1317 1317 1491; Sub 1441 1441 1317; Mul 1276 560 1276; Mul 1491 553 1604;
  Add 1649 1276 1491; Mul 1115 244 1115; Mul 1099 248 1099; Add 1681 1115 1099; Sub 1649 1649 1681;
  Sub 1441 1441 1649; Mul 1604 558 1604; Mul 1634 560 1634; Add 1649 1604 1634; Mul 1145 243 1145;
  Mul 1484 249 1484; Add 1681 1145 1484; Sub 1649 1649 1681; Add 1441 1441 1649; Mul 1019 219 1019;
  Mul 1456 239 1456; Add 1019 1019 1456; Mul 1123 227 1123; Mul 1699 246 1699; Add 1123 1123 1699;
  Add 1019 1019 1123; Mul 1383 467 1383; Mul 1500 525 1500; Sub 1383 1383 1500; Add 1019 1019 1383;
  Mul 1413 231 1413; Mul 1383 559 1602; Sub 1413 1413 1383; Mul 1383 616 1167].
Definition casadi_f0_484 : list instruction := [
  Mul 1213 225 1213; Add 1383 1383 1213; Add 1413 1413 1383; Add 1019 1019 1413; Mul 1019 213 1019;
  Sub 1441 1441 1019; Mul 1413 572 1192; Mul 1501 574 1501; Add 1383 1413 1501; Mul 1036 284 1036;
  Mul 1419 258 1419; Add 1213 1036 1419; Sub 1383 1383 1213; Mul 1213 297 1236; Mul 1500 271 1324;
  Add 1123 1213 1500; Mul 1699 282 1232; Mul 1456 300 1353; Add 1649 1699 1456; Add 1123 1123 1649;
  Mul 1114 574 1114; Mul 1192 567 1192; Add 1649 1114 1192; Mul 1668 279 1668; Mul 1076 276 1076;
  Add 1681 1668 1076; Sub 1649 1649 1681; Add 1123 1123 1649; Sub 1383 1383 1123; Mul 1467 255 1467;
  Mul 1123 280 1279; Add 1467 1467 1123; Mul 1261 278 1261; Mul 1123 266 1546; Add 1261 1261 1123;
  Add 1467 1467 1261; Mul 1528 296 1528; Mul 1351 472 1351; Add 1528 1528 1351; Add 1467 1467 1528;
  Mul 1528 573 1353; Mul 1607 282 1607; Add 1528 1528 1607; Mul 1607 617 1236; Mul 1203 271 1203;
  Add 1607 1607 1203; Sub 1528 1528 1607; Add 1467 1467 1528; Mul 1467 213 1467; Sub 1383 1383 1467;
  Mul 1528 586 1480; Mul 1597 588 1597; Add 1607 1528 1597; Mul 1375 338 1375; Mul 1227 312 1227;
  Add 1203 1375 1227; Sub 1607 1607 1203; Mul 1203 351 1354; Mul 1351 325 1302; Add 1261 1203 1351;
  Mul 1123 336 1188; Mul 1649 354 1240; Add 1681 1123 1649; Add 1261 1261 1681; Mul 1660 588 1660;
  Mul 1480 581 1480; Add 1681 1660 1480; Mul 1543 333 1543; Mul 1022 330 1022; Add 1154 1543 1022;
  Sub 1681 1681 1154; Add 1261 1261 1681; Sub 1607 1607 1261; Mul 1540 309 1540; Mul 1261 334 1247;
  Add 1540 1540 1261; Mul 1643 332 1643; Mul 1261 320 1670; Add 1643 1643 1261; Add 1540 1540 1643;
  Mul 1177 349 1177; Mul 1688 474 1688; Add 1177 1177 1688; Add 1540 1540 1177; Mul 1177 587 1240;
  Mul 1180 336 1180; Add 1177 1177 1180; Mul 1180 619 1354; Mul 1320 325 1320; Add 1180 1180 1320;
  Sub 1177 1177 1180; Add 1540 1540 1177; Mul 1540 213 1540; Sub 1607 1607 1540; Mul 1177 599 1124;
  Mul 1221 601 1221; Add 1180 1177 1221; Mul 1473 393 1473; Mul 1362 366 1362; Add 1320 1473 1362;
  Sub 1180 1180 1320; Mul 1320 406 1518; Mul 1688 381 1147; Add 1643 1320 1688; Mul 1261 391 1052;
  Mul 1681 409 1193; Add 1154 1261 1681; Add 1643 1643 1154; Mul 1616 601 1616; Mul 1124 594 1124;
  Add 1154 1616 1124; Mul 1151 388 1151; Mul 1176 385 1176; Add 1589 1151 1176; Sub 1154 1154 1589;
  Add 1643 1643 1154; Sub 1180 1180 1643; Mul 1225 363 1225; Mul 1643 389 1666; Add 1225 1225 1643;
  Mul 1639 387 1639; Mul 1643 374 1025; Add 1639 1639 1643; Add 1225 1225 1639; Mul 1102 405 1102;
  Mul 1318 476 1318; Add 1102 1102 1318; Add 1225 1225 1102; Mul 1102 600 1193; Mul 1152 391 1152;
  Add 1102 1102 1152; Mul 1152 621 1518; Mul 1675 381 1675; Add 1152 1152 1675; Sub 1102 1102 1152;
  Add 1225 1225 1102; Mul 1225 213 1225; Sub 1180 1180 1225; Mul 1102 612 1431; Mul 1310 614 1310;
  Add 1152 1102 1310; Mul 1476 447 1476; Mul 1564 420 1564; Add 1675 1476 1564; Sub 1152 1152 1675;
  Mul 1675 460 1457; Mul 1318 434 1206; Add 1639 1675 1318; Mul 1643 445 1278].
Definition casadi_f0_485 : list instruction := [
  Mul 1154 463 1449; Add 1589 1643 1154; Add 1639 1639 1589; Mul 1244 614 1244; Mul 1431 607 1431;
  Add 1589 1244 1431; Mul 1111 442 1111; Mul 1378 439 1378; Add 1118 1111 1378; Sub 1589 1589 1118;
  Add 1639 1639 1589; Sub 1152 1152 1639; Mul 1639 417 1062; Mul 1589 443 1696; Add 1639 1639 1589;
  Mul 1589 441 1360; Mul 1118 426 1689; Add 1589 1589 1118; Add 1639 1639 1589; Mul 1589 459 1089;
  Mul 1200 478 1200; Add 1589 1589 1200; Add 1639 1639 1589; Mul 1589 611 1449; Mul 1257 445 1257;
  Add 1589 1589 1257; Mul 1257 623 1457; Mul 1387 434 1387; Add 1257 1257 1387; Sub 1589 1589 1257;
  Add 1639 1639 1589; Mul 1639 213 1639; Sub 1152 1152 1639; Add 1180 1180 1152; Add 1607 1607 1180;
  Add 1383 1383 1607; Add 1441 1441 1383; Mul 1441 215 1441; Mul 1589 470 1580; Add 1441 1441 1589;
  Sub 1128 1128 1441; Mul 1441 225 1204; Mul 1589 624 1167; Add 1257 1441 1589; Mul 1387 231 1436;
  Mul 1200 650 1602; Sub 1387 1387 1200; Sub 1257 1257 1387; Mul 1116 213 1116; Add 1200 1257 1116;
  Mul 1353 655 1353; Mul 1658 282 1658; Add 1118 1353 1658; Sub 1118 1545 1118; Mul 1479 271 1479;
  Mul 1236 629 1236; Add 1439 1479 1236; Add 1118 1118 1439; Mul 1418 213 1418; Sub 1439 1118 1418;
  Mul 1240 659 1240; Mul 1343 336 1343; Add 1190 1240 1343; Sub 1190 1243 1190; Mul 1333 325 1333;
  Mul 1354 634 1354; Add 1169 1333 1354; Add 1190 1190 1169; Mul 1120 213 1120; Sub 1169 1190 1120;
  Mul 1193 663 1193; Mul 1211 391 1211; Add 1566 1193 1211; Sub 1566 1503 1566; Mul 1471 381 1471;
  Mul 1518 639 1518; Add 1562 1471 1518; Add 1566 1566 1562; Mul 1673 213 1673; Sub 1562 1566 1673;
  Mul 1581 667 1449; Mul 1335 445 1335; Add 1461 1581 1335; Sub 1461 1608 1461; Mul 1295 434 1295;
  Mul 1301 644 1457; Add 1075 1295 1301; Add 1461 1461 1075; Mul 1182 213 1182; Sub 1075 1461 1182;
  Add 1562 1562 1075; Add 1169 1169 1562; Add 1439 1439 1169; Add 1200 1200 1439; Mul 1200 540 1200;
  Mul 1513 250 1313; Sub 1200 1200 1513; Mul 1436 225 1436; Mul 1167 650 1167; Add 1513 1436 1167;
  Mul 1204 231 1204; Mul 1602 624 1602; Sub 1204 1204 1602; Add 1167 1167 1436; Mul 1081 242 1081;
  Mul 1104 626 1104; Sub 1081 1081 1104; Add 1104 1167 1081; Add 1436 1204 1104; Sub 1436 1513 1436;
  Add 1513 1513 1081; Add 1204 1204 1513; Sub 1167 1167 1204; Sub 1436 1436 1167; Sub 1497 1497 1694;
  Sub 1091 1091 1606; Sub 1497 1497 1091; Sub 1329 1329 1122; Sub 1319 1319 1166; Sub 1329 1329 1319;
  Sub 1368 1368 1474; Sub 1268 1268 1641; Sub 1368 1368 1268; Sub 1640 1640 1363; Sub 1130 1130 1686;
  Sub 1640 1640 1130; Add 1368 1368 1640; Add 1329 1329 1368; Add 1497 1497 1329; Add 1436 1436 1497;
  Mul 1130 544 1436; Mul 1686 806 1049; Add 1130 1130 1686; Add 1200 1200 1130; Sub 1128 1128 1200;
  Add 1459 1459 1128; Mul 1459 216 1459; Mul 1128 652 1148; Sub 1459 1459 1128; Mul 1128 804 1580;
  Mul 1283 508 1283; Mul 1200 521 1486; Add 1283 1283 1200; Add 1270 1270 1451; Mul 1270 20 1270;
  Add 1403 1403 1496; Sub 1270 1270 1403; Sub 1338 1270 1338; Add 1189 1189 1021].
Definition casadi_f0_486 : list instruction := [
  Mul 1189 37 1189; Add 1338 1338 1189; Sub 1327 1338 1327; Add 1598 1598 1519; Mul 1598 80 1598;
  Add 1327 1327 1598; Add 1652 1652 1327; Sub 1161 1161 1106; Mul 1161 100 1161; Add 1652 1652 1161;
  Mul 1652 526 1652; Mul 1161 499 1424; Add 1652 1652 1161; Mul 1263 536 1263; Mul 1161 784 1133;
  Add 1263 1263 1161; Add 1652 1652 1263; Sub 1283 1283 1652; Mul 1587 791 1587; Mul 1450 543 1450;
  Add 1587 1587 1450; Mul 1346 539 1346; Mul 1450 538 1109; Add 1346 1346 1450; Sub 1587 1587 1346;
  Add 1283 1283 1587; Add 1445 1445 1613; Sub 1445 1445 1317; Add 1484 1484 1145; Add 1634 1634 1604;
  Sub 1484 1484 1634; Sub 1445 1445 1484; Add 1099 1099 1115; Add 1491 1491 1276; Sub 1099 1099 1491;
  Add 1445 1445 1099; Add 1445 1445 1019; Add 1076 1076 1668; Add 1192 1192 1114; Sub 1076 1076 1192;
  Add 1456 1456 1699; Add 1500 1500 1213; Add 1456 1456 1500; Add 1419 1419 1036; Add 1501 1501 1413;
  Sub 1419 1419 1501; Add 1456 1456 1419; Sub 1076 1076 1456; Add 1076 1076 1467; Add 1022 1022 1543;
  Add 1480 1480 1660; Sub 1022 1022 1480; Add 1649 1649 1123; Add 1351 1351 1203; Add 1649 1649 1351;
  Add 1227 1227 1375; Add 1597 1597 1528; Sub 1227 1227 1597; Add 1649 1649 1227; Sub 1022 1022 1649;
  Add 1022 1022 1540; Add 1176 1176 1151; Add 1124 1124 1616; Sub 1176 1176 1124; Add 1681 1681 1261;
  Add 1688 1688 1320; Add 1681 1681 1688; Add 1362 1362 1473; Add 1221 1221 1177; Sub 1362 1362 1221;
  Add 1681 1681 1362; Sub 1176 1176 1681; Add 1176 1176 1225; Add 1378 1378 1111; Add 1431 1431 1244;
  Sub 1378 1378 1431; Add 1154 1154 1643; Add 1318 1318 1675; Add 1154 1154 1318; Add 1564 1564 1476;
  Add 1310 1310 1102; Sub 1564 1564 1310; Add 1154 1154 1564; Sub 1378 1378 1154; Add 1378 1378 1639;
  Add 1176 1176 1378; Add 1022 1022 1176; Add 1076 1076 1022; Add 1445 1445 1076; Mul 1445 216 1445;
  Mul 1639 507 1148; Sub 1445 1445 1639; Add 1117 1117 1470; Sub 1194 1194 1105; Sub 1117 1117 1194;
  Sub 1517 1517 1650; Add 1117 1117 1517; Add 1230 1230 1282; Sub 1585 1585 1266; Sub 1230 1230 1585;
  Sub 1603 1603 1199; Add 1230 1230 1603; Add 1094 1094 1093; Sub 1671 1671 1601; Sub 1094 1094 1671;
  Sub 1558 1558 1242; Add 1094 1094 1558; Add 1332 1332 1163; Sub 1285 1285 1325; Sub 1332 1332 1285;
  Sub 1396 1396 1235; Add 1332 1332 1396; Add 1690 1690 1420; Sub 1458 1458 1173; Sub 1690 1690 1458;
  Sub 1055 1055 1164; Add 1690 1690 1055; Add 1332 1332 1690; Add 1094 1094 1332; Add 1230 1230 1094;
  Add 1117 1117 1230; Mul 1117 215 1117; Mul 1055 226 1580; Add 1117 1117 1055; Sub 1445 1445 1117;
  Sub 1513 1513 1104; Sub 1349 1349 1495; Sub 1356 1356 1542; Sub 1425 1425 1144; Sub 1358 1358 1487;
  Add 1425 1425 1358; Add 1356 1356 1425; Add 1349 1349 1356; Add 1513 1513 1349; Mul 1487 540 1513;
  Mul 1144 805 1313; Sub 1487 1487 1144; Add 1589 1589 1441; Sub 1387 1387 1589; Sub 1589 1387 1116;
  Add 1658 1658 1353; Add 1236 1236 1479; Add 1545 1545 1236; Sub 1658 1658 1545; Add 1545 1658 1418;
  Add 1343 1343 1240; Add 1354 1354 1333; Add 1243 1243 1354; Sub 1343 1343 1243].
Definition casadi_f0_487 : list instruction := [
  Add 1243 1343 1120; Add 1211 1211 1193; Add 1518 1518 1471; Add 1503 1503 1518; Sub 1211 1211 1503;
  Add 1503 1211 1673; Add 1335 1335 1581; Add 1301 1301 1295; Add 1608 1608 1301; Sub 1335 1335 1608;
  Add 1608 1335 1182; Add 1503 1503 1608; Add 1243 1243 1503; Add 1545 1545 1243; Add 1589 1589 1545;
  Mul 1589 544 1589; Mul 1301 693 1049; Add 1589 1589 1301; Add 1487 1487 1589; Sub 1445 1445 1487;
  Add 1283 1283 1445; Mul 1283 215 1283; Add 1128 1128 1283; Sub 1459 1459 1128; Sub 1257 1257 1116;
  Add 1118 1118 1418; Add 1190 1190 1120; Add 1566 1566 1673; Add 1461 1461 1182; Add 1566 1566 1461;
  Add 1190 1190 1566; Add 1118 1118 1190; Add 1257 1257 1118; Mul 1257 216 1257; Mul 1128 305 1148;
  Sub 1257 1257 1128; Mul 1513 215 1513; Mul 1128 805 1580; Add 1513 1513 1128; Sub 1257 1257 1513;
  Add 1638 1638 1257; Mul 1638 540 1638; Mul 1257 307 1313; Sub 1638 1638 1257; Mul 1257 360 1049;
  Mul 1436 216 1436; Mul 1513 806 1148; Sub 1436 1436 1513; Add 1387 1387 1116; Sub 1658 1658 1418;
  Sub 1343 1343 1120; Sub 1211 1211 1673; Sub 1335 1335 1182; Add 1211 1211 1335; Add 1343 1343 1211;
  Add 1658 1658 1343; Add 1387 1387 1658; Mul 1387 215 1387; Mul 1182 700 1580; Add 1387 1387 1182;
  Sub 1436 1436 1387; Add 1109 1109 1436; Mul 1109 544 1109; Add 1257 1257 1109; Add 1638 1638 1257;
  Sub 1459 1459 1638; Mul 1459 1 1459; Mul 1638 469 1323; Add 1459 1459 1638; Add 1355 1355 1459;
  Mul 1459 602 1447; Mul 1638 783 1579; Add 1459 1459 1638; Mul 1638 670 1369; Mul 1257 488 1229;
  Add 1638 1638 1257; Add 1459 1459 1638; Mul 1638 671 1146; Mul 1257 532 1494; Add 1638 1638 1257;
  Sub 1459 1459 1638; Mul 1638 679 1522; Mul 1257 523 1648; Add 1638 1638 1257; Mul 1257 796 1653;
  Mul 1279 680 1279; Mul 1109 255 1667; Add 1279 1279 1109; Mul 1546 674 1546; Mul 1109 278 1143;
  Sub 1546 1546 1109; Sub 1279 1279 1546; Mul 1077 216 1077; Mul 1546 294 1148; Sub 1077 1077 1546;
  Mul 1475 215 1475; Mul 1546 299 1580; Add 1475 1475 1546; Add 1077 1077 1475; Sub 1279 1279 1077;
  Mul 1077 670 1653; Mul 1475 502 1229; Add 1077 1077 1475; Mul 1475 602 1611; Mul 1546 505 1579;
  Add 1475 1475 1546; Sub 1077 1077 1475; Sub 1077 1279 1077; Mul 1077 672 1077; Mul 1475 502 1077;
  Add 1257 1257 1475; Sub 1638 1638 1257; Add 1459 1459 1638; Mul 1638 674 1439; Mul 1257 794 1143;
  Sub 1638 1638 1257; Mul 1257 680 1497; Mul 1475 689 1667; Add 1546 1257 1475; Add 1305 1305 1016;
  Add 1665 1665 1464; Add 1324 1324 1665; Sub 1305 1305 1324; Add 1324 1305 1444; Add 1434 1434 1539;
  Add 1110 1110 1042; Add 1302 1302 1110; Sub 1434 1434 1302; Add 1302 1434 1142; Add 1415 1415 1228;
  Add 1454 1454 1141; Add 1147 1147 1454; Sub 1415 1415 1147; Add 1147 1415 1308; Add 1071 1071 1527;
  Add 1617 1617 1108; Add 1206 1206 1617; Sub 1071 1071 1206; Add 1206 1071 1127; Add 1147 1147 1206;
  Add 1302 1302 1147; Add 1324 1324 1302; Mul 1324 676 1324; Mul 1617 410 1315; Add 1324 1324 1617;
  Sub 1546 1546 1324; Add 1638 1638 1546; Mul 1546 215 1383; Mul 1324 461 1580].
Definition casadi_f0_488 : list instruction := [
  Add 1546 1546 1324; Mul 1252 216 1252; Mul 1324 277 1148; Sub 1252 1252 1324; Sub 1546 1546 1252;
  Add 1638 1638 1546; Add 1459 1459 1638; Mul 1459 216 1459; Mul 1638 707 1148; Sub 1459 1459 1638;
  Mul 1638 793 1580; Mul 1546 602 1327; Mul 1324 491 1579; Add 1546 1546 1324; Mul 1324 670 1447;
  Mul 1617 783 1229; Add 1324 1324 1617; Add 1546 1546 1324; Mul 1324 671 1537; Mul 1617 517 1494;
  Add 1324 1324 1617; Sub 1546 1546 1324; Mul 1324 796 1611; Mul 1617 505 1077; Add 1324 1324 1617;
  Mul 1617 675 1522; Mul 1108 523 1339; Add 1617 1617 1108; Sub 1324 1324 1617; Add 1546 1546 1324;
  Mul 1324 674 1349; Mul 1617 682 1143; Sub 1324 1324 1617; Mul 1617 680 1545; Mul 1108 808 1667;
  Add 1617 1617 1108; Add 1239 1239 1402; Sub 1232 1232 1239; Add 1672 1672 1588; Add 1232 1232 1672;
  Sub 1672 1232 1554; Add 1590 1590 1401; Sub 1188 1188 1590; Add 1411 1411 1526; Add 1188 1188 1411;
  Sub 1411 1188 1374; Add 1131 1131 1347; Sub 1052 1052 1131; Add 1599 1599 1181; Add 1052 1052 1599;
  Sub 1599 1052 1280; Add 1034 1034 1272; Sub 1278 1278 1034; Add 1254 1254 1125; Add 1278 1278 1254;
  Sub 1254 1278 1700; Add 1599 1599 1254; Add 1411 1411 1599; Add 1672 1672 1411; Mul 1672 676 1672;
  Mul 1125 301 1315; Add 1672 1672 1125; Sub 1617 1617 1672; Add 1617 1324 1617; Mul 1230 215 1230;
  Mul 1672 303 1580; Add 1125 1230 1672; Mul 1034 216 1076; Mul 1272 468 1148; Sub 1034 1034 1272;
  Sub 1125 1125 1034; Add 1617 1617 1125; Add 1546 1546 1617; Mul 1546 215 1546; Add 1638 1638 1546;
  Sub 1546 1459 1638; Mul 1349 215 1349; Mul 1617 682 1580; Add 1125 1349 1617; Mul 1034 216 1118;
  Mul 1272 792 1148; Sub 1034 1034 1272; Sub 1125 1125 1034; Add 1648 1648 1125; Mul 1125 540 1648;
  Mul 1034 233 1313; Sub 1125 1125 1034; Mul 1034 789 1049; Mul 1272 215 1658; Mul 1181 686 1580;
  Add 1272 1272 1181; Mul 1497 216 1497; Mul 1181 689 1148; Sub 1497 1497 1181; Sub 1272 1272 1497;
  Add 1339 1339 1272; Mul 1272 544 1339; Add 1034 1034 1272; Add 1125 1125 1034; Sub 1546 1546 1125;
  Mul 1546 2 1546; Mul 1125 285 1488; Add 1546 1546 1125; Add 1355 1355 1546; Mul 1546 677 1082;
  Mul 1125 530 1326; Add 1546 1546 1125; Mul 1125 706 1060; Mul 1034 782 1684; Add 1125 1125 1034;
  Mul 1034 712 1433; Mul 1272 481 1271; Add 1034 1034 1272; Add 1125 1125 1034; Sub 1546 1546 1125;
  Mul 1125 719 1172; Mul 1034 519 1207; Add 1125 1125 1034; Mul 1034 709 1621; Mul 1481 216 1481;
  Mul 1272 348 1148; Sub 1481 1481 1272; Mul 1412 215 1412; Mul 1272 353 1580; Add 1412 1412 1272;
  Add 1481 1481 1412; Mul 1670 714 1670; Mul 1412 332 1677; Add 1670 1670 1412; Mul 1247 718 1247;
  Mul 1412 309 1216; Add 1247 1247 1412; Sub 1670 1670 1247; Add 1481 1481 1670; Mul 1670 706 1609;
  Mul 1247 497 1684; Add 1670 1670 1247; Mul 1247 712 1621; Mul 1412 494 1271; Add 1247 1247 1412;
  Sub 1670 1670 1247; Sub 1670 1481 1670; Mul 1670 156 1670; Mul 1247 494 1670; Add 1034 1034 1247;
  Sub 1125 1125 1034; Add 1546 1546 1125; Mul 1125 716 1302; Mul 1034 403 1535].
Definition casadi_f0_489 : list instruction := [
  Add 1125 1125 1034; Mul 1034 718 1329; Mul 1247 696 1216; Add 1412 1034 1247; Sub 1125 1125 1412;
  Mul 1412 714 1169; Mul 1272 797 1677; Add 1412 1412 1272; Sub 1125 1125 1412; Mul 1250 216 1250;
  Mul 1412 331 1148; Sub 1250 1250 1412; Mul 1412 215 1607; Mul 1272 414 1580; Add 1412 1412 1272;
  Sub 1412 1250 1412; Add 1125 1125 1412; Add 1546 1546 1125; Mul 1546 216 1546; Mul 1125 790 1148;
  Sub 1546 1546 1125; Mul 1125 704 1580; Mul 1412 677 1288; Mul 1272 513 1326; Add 1412 1412 1272;
  Mul 1272 706 1338; Mul 1181 483 1684; Add 1272 1272 1181; Mul 1181 712 1060; Mul 1131 782 1271;
  Add 1181 1181 1131; Add 1272 1272 1181; Sub 1412 1412 1272; Mul 1272 709 1609; Mul 1181 497 1670;
  Add 1272 1272 1181; Mul 1181 711 1172; Mul 1131 519 1455; Add 1181 1181 1131; Sub 1272 1272 1181;
  Add 1412 1412 1272; Mul 1272 716 1411; Mul 1181 293 1535; Add 1272 1272 1181; Mul 1181 718 1243;
  Mul 1131 415 1216; Add 1181 1181 1131; Sub 1272 1272 1181; Mul 1181 714 1356; Mul 1131 685 1677;
  Add 1347 1181 1131; Sub 1272 1272 1347; Mul 1347 216 1022; Mul 1526 416 1148; Sub 1347 1347 1526;
  Mul 1094 215 1094; Mul 1526 357 1580; Add 1590 1094 1526; Sub 1347 1347 1590; Add 1272 1272 1347;
  Add 1412 1412 1272; Mul 1412 215 1412; Add 1125 1125 1412; Sub 1412 1546 1125; Mul 1272 216 1190;
  Mul 1347 795 1148; Sub 1272 1272 1347; Mul 1356 215 1356; Mul 1347 685 1580; Add 1590 1356 1347;
  Sub 1272 1272 1590; Add 1207 1207 1272; Mul 1272 540 1207; Mul 1590 697 1313; Sub 1272 1272 1590;
  Mul 1590 695 1049; Mul 1329 216 1329; Mul 1401 696 1148; Sub 1329 1329 1401; Mul 1401 215 1343;
  Mul 1588 448 1580; Add 1401 1401 1588; Sub 1401 1329 1401; Add 1455 1455 1401; Mul 1401 544 1455;
  Add 1590 1590 1401; Add 1272 1272 1590; Sub 1272 1412 1272; Mul 1272 3 1272; Mul 1590 691 1655;
  Add 1272 1272 1590; Add 1355 1355 1272; Mul 1272 715 1162; Mul 1590 606 1618; Add 1272 1272 1590;
  Mul 1590 721 1312; Mul 1401 786 1529; Add 1590 1590 1401; Add 1272 1272 1590; Mul 1590 722 1577;
  Mul 1401 528 1555; Add 1590 1590 1401; Add 1272 1272 1590; Mul 1590 730 1502; Mul 1401 515 1113;
  Add 1590 1590 1401; Mul 1401 683 1525; Mul 1314 310 1314; Mul 1588 408 1628; Add 1314 1314 1588;
  Mul 1460 327 1460; Mul 1588 404 1275; Add 1460 1460 1588; Sub 1314 1314 1460; Mul 1666 731 1666;
  Mul 1460 363 1573; Add 1666 1666 1460; Mul 1025 725 1025; Mul 1460 387 1251; Add 1025 1025 1460;
  Sub 1666 1666 1025; Add 1314 1314 1666; Mul 1666 721 1525; Mul 1025 486 1529; Add 1666 1666 1025;
  Mul 1025 715 1662; Mul 1460 489 1618; Add 1025 1025 1460; Sub 1666 1666 1025; Sub 1666 1314 1666;
  Mul 1666 723 1666; Mul 1025 486 1666; Add 1401 1401 1025; Sub 1590 1590 1401; Add 1272 1272 1590;
  Mul 1590 725 1562; Mul 1401 800 1251; Add 1590 1590 1401; Mul 1401 731 1368; Mul 1025 703 1573;
  Add 1460 1401 1025; Mul 1588 727 1147; Mul 1239 306 1627; Add 1588 1588 1239; Add 1460 1460 1588;
  Add 1590 1590 1460; Mul 1460 310 1180; Mul 1588 361 1628; Add 1460 1460 1588].
Definition casadi_f0_490 : list instruction := [
  Mul 1018 327 1018; Mul 1588 386 1275; Add 1239 1018 1588; Mul 1402 318 1370; Mul 1108 59 1687;
  Add 1402 1402 1108; Add 1239 1239 1402; Add 1460 1460 1239; Sub 1590 1590 1460; Add 1272 1272 1590;
  Mul 1590 216 1272; Mul 1460 690 1148; Sub 1590 1590 1460; Mul 1460 807 1580; Mul 1239 715 1270;
  Mul 1402 705 1618; Add 1239 1239 1402; Mul 1402 721 1162; Mul 1108 606 1529; Add 1402 1402 1108;
  Add 1239 1239 1402; Mul 1402 722 1701; Mul 1108 510 1555; Add 1402 1402 1108; Add 1239 1239 1402;
  Mul 1402 683 1662; Mul 1108 489 1666; Add 1402 1402 1108; Mul 1108 726 1502; Mul 1527 515 1187;
  Add 1108 1108 1527; Sub 1402 1402 1108; Add 1239 1239 1402; Mul 1402 725 1425; Mul 1108 692 1251;
  Add 1527 1402 1108; Mul 1454 731 1503; Mul 1141 465 1573; Add 1454 1454 1141; Mul 1141 727 1599;
  Mul 1228 785 1627; Add 1141 1141 1228; Add 1454 1454 1141; Add 1527 1527 1454; Mul 1332 310 1332;
  Mul 1454 412 1628; Add 1141 1332 1454; Mul 1228 327 1176; Mul 1110 407 1275; Add 1228 1228 1110;
  Mul 1110 318 1506; Mul 1042 580 1687; Add 1110 1110 1042; Add 1228 1228 1110; Add 1141 1141 1228;
  Sub 1527 1527 1141; Add 1239 1239 1527; Mul 1527 215 1239; Add 1460 1460 1527; Sub 1527 1590 1460;
  Mul 1425 310 1425; Mul 1141 692 1628; Add 1228 1425 1141; Mul 1110 327 1566; Mul 1042 798 1275;
  Add 1110 1110 1042; Mul 1042 318 1565; Mul 1539 640 1687; Add 1042 1042 1539; Add 1110 1110 1042;
  Add 1228 1228 1110; Sub 1113 1113 1228; Mul 1228 540 1113; Mul 1110 811 1313; Sub 1228 1228 1110;
  Mul 1110 813 1049; Mul 1042 310 1211; Mul 1539 464 1628; Add 1042 1042 1539; Mul 1368 327 1368;
  Mul 1539 703 1275; Add 1665 1368 1539; Mul 1464 318 1692; Mul 1016 662 1687; Add 1464 1464 1016;
  Add 1665 1665 1464; Add 1042 1042 1665; Sub 1187 1187 1042; Mul 1042 544 1187; Add 1110 1110 1042;
  Add 1228 1228 1110; Sub 1228 1527 1228; Mul 1228 4 1228; Mul 1110 812 1168; Add 1228 1228 1110;
  Add 1355 1355 1228; Mul 1228 728 1348; Mul 1110 609 1237; Add 1228 1228 1110; Mul 1110 733 1215;
  Mul 1042 604 1644; Add 1110 1110 1042; Add 1228 1228 1110; Mul 1110 734 1360; Mul 1042 426 1097;
  Add 1110 1110 1042; Add 1228 1228 1110; Mul 1110 739 1087; Mul 1042 438 1646; Add 1110 1110 1042;
  Mul 1042 816 1449; Mul 1395 358 1395; Mul 1665 462 1435; Add 1395 1395 1665; Mul 1620 372 1620;
  Mul 1665 458 1625; Add 1620 1620 1665; Sub 1395 1395 1620; Mul 1696 741 1696; Mul 1620 417 1393;
  Add 1696 1696 1620; Mul 1689 736 1689; Mul 1620 441 1561; Add 1689 1689 1620; Sub 1696 1696 1689;
  Add 1395 1395 1696; Mul 1696 733 1449; Mul 1689 445 1644; Add 1696 1696 1689; Mul 1689 728 1457;
  Mul 1620 434 1237; Add 1689 1689 1620; Sub 1696 1696 1689; Sub 1395 1395 1696; Mul 1395 430 1395;
  Mul 1696 445 1395; Add 1042 1042 1696; Sub 1110 1110 1042; Add 1228 1228 1110; Mul 1110 736 1075;
  Mul 1042 803 1561; Add 1110 1110 1042; Mul 1042 741 1640; Mul 1696 710 1393; Add 1689 1042 1696;
  Mul 1620 738 1206; Mul 1665 356 1311; Add 1620 1620 1665; Add 1689 1689 1620].
Definition casadi_f0_491 : list instruction := [
  Add 1110 1110 1689; Mul 1689 358 1152; Mul 1620 352 1435; Add 1689 1689 1620; Mul 1647 372 1647;
  Mul 1620 440 1625; Add 1665 1647 1620; Mul 1464 369 1274; Mul 1016 36 1423; Add 1464 1464 1016;
  Add 1665 1665 1464; Add 1689 1689 1665; Sub 1110 1110 1689; Add 1228 1228 1110; Mul 1110 216 1228;
  Mul 1689 814 1148; Sub 1110 1110 1689; Mul 1689 817 1580; Mul 1237 13 1237; Mul 1665 728 1496;
  Sub 1237 1237 1665; Mul 1665 733 1348; Mul 1644 609 1644; Add 1665 1665 1644; Add 1237 1237 1665;
  Mul 1665 734 1062; Mul 1097 443 1097; Add 1665 1665 1097; Add 1237 1237 1665; Mul 1665 816 1457;
  Mul 1097 434 1395; Add 1665 1665 1097; Mul 1097 735 1087; Mul 1644 438 1373; Add 1097 1097 1644;
  Sub 1665 1665 1097; Add 1237 1237 1665; Mul 1665 736 1358; Mul 1097 699 1561; Add 1644 1665 1097;
  Mul 1464 741 1608; Mul 1016 394 1393; Add 1464 1464 1016; Mul 1016 738 1254; Mul 1109 245 1311;
  Add 1016 1016 1109; Add 1464 1464 1016; Add 1644 1644 1464; Mul 1690 358 1690; Mul 1464 466 1435;
  Add 1016 1690 1464; Mul 1109 372 1378; Mul 1436 359 1625; Add 1109 1109 1436; Mul 1436 369 1691;
  Mul 1387 593 1423; Add 1436 1436 1387; Add 1109 1109 1436; Add 1016 1016 1109; Sub 1644 1644 1016;
  Add 1237 1237 1644; Mul 1644 215 1237; Add 1689 1689 1644; Sub 1644 1110 1689; Mul 1358 358 1358;
  Mul 1016 699 1435; Add 1109 1358 1016; Mul 1436 372 1461; Mul 1387 801 1625; Add 1436 1436 1387;
  Mul 1387 369 1659; Mul 1182 645 1423; Add 1387 1387 1182; Add 1436 1436 1387; Add 1109 1109 1436;
  Sub 1646 1646 1109; Mul 1109 540 1646; Mul 1436 820 1313; Sub 1109 1109 1436; Mul 1436 822 1049;
  Mul 1387 358 1335; Mul 1182 457 1435; Add 1387 1387 1182; Mul 1640 372 1640; Mul 1182 710 1625;
  Add 1673 1640 1182; Mul 1120 369 1394; Mul 1418 666 1423; Add 1120 1120 1418; Add 1673 1673 1120;
  Add 1387 1387 1673; Sub 1373 1373 1387; Mul 1387 544 1373; Add 1436 1436 1387; Add 1109 1109 1436;
  Sub 1109 1644 1109; Mul 1109 5 1109; Mul 1436 821 1578; Add 1109 1109 1436; Add 1355 1355 1109;
  Mul 1430 85 1430; Mul 1663 79 1663; Sub 1430 1430 1663; Mul 1198 54 1198; Mul 1512 61 1512;
  Sub 1198 1198 1512; Mul 1632 19 1632; Mul 1512 763 1290; Sub 1632 1632 1512; Mul 1512 751 1382;
  Mul 1030 35 1030; Add 1512 1512 1030; Sub 1632 1632 1512; Mul 1226 55 1226; Mul 1024 62 1024;
  Sub 1226 1226 1024; Add 1632 1632 1226; Add 1198 1198 1632; Mul 1392 86 1392; Mul 1685 91 1685;
  Sub 1392 1392 1685; Add 1392 1198 1392; Add 1430 1430 1392; Mul 1594 102 1594; Sub 1594 1430 1594;
  Mul 1103 101 1103; Add 1594 1594 1103; Add 1355 1355 1594; Mul 1594 777 1355; Sub 1483 1483 1594;
  Add 1592 1592 1483; Div 1483 1462 92; Mul 1594 1023 1174; Sub 1483 1483 1594; Mul 1594 767 1483;
  Mul 1422 674 1422; Mul 1103 630 1143; Sub 1422 1422 1103; Mul 1103 654 1667; Mul 1576 680 1576;
  Add 1103 1103 1576; Add 1674 1674 1482; Sub 1103 1103 1674; Add 1422 1422 1103; Mul 1103 615 1580;
  Mul 1372 215 1372; Add 1103 1103 1372; Mul 1549 216 1549; Mul 1372 7 1148].
Definition casadi_f0_492 : list instruction := [
  Sub 1549 1549 1372; Sub 1103 1103 1549; Add 1422 1422 1103; Mul 1422 0 1422; Mul 1103 771 1524;
  Add 1422 1422 1103; Mul 1103 748 1426; Mul 1549 216 1522; Mul 1372 523 1148; Sub 1549 1549 1372;
  Add 1549 1143 1549; Mul 1549 672 1549; Mul 1372 545 1549; Sub 1103 1103 1372; Mul 1372 216 1653;
  Mul 1674 502 1148; Sub 1372 1372 1674; Mul 1674 215 1611; Mul 1482 505 1580; Add 1674 1674 1482;
  Add 1372 1372 1674; Sub 1372 1372 1315; Mul 1372 672 1372; Mul 1674 504 1372; Mul 1482 750 1224;
  Add 1674 1674 1482; Mul 1482 215 1522; Mul 1576 523 1580; Add 1482 1482 1576; Sub 1482 1667 1482;
  Mul 1482 672 1482; Mul 1576 541 1482; Mul 1392 627 1493; Add 1576 1576 1392; Sub 1674 1674 1576;
  Add 1103 1103 1674; Mul 1537 215 1537; Mul 1674 517 1580; Add 1537 1537 1674; Mul 1146 216 1146;
  Mul 1674 532 1148; Sub 1146 1146 1674; Sub 1537 1537 1146; Mul 1146 627 1653; Mul 1674 502 1482;
  Add 1146 1146 1674; Mul 1674 748 1611; Mul 1576 505 1549; Sub 1674 1674 1576; Sub 1146 1146 1674;
  Add 1537 1537 1146; Mul 1537 508 1537; Mul 1146 744 1486; Add 1537 1537 1146; Mul 1146 215 1447;
  Mul 1674 783 1580; Add 1146 1146 1674; Mul 1369 216 1369; Mul 1674 488 1148; Sub 1369 1369 1674;
  Sub 1146 1146 1369; Mul 1369 748 1522; Mul 1549 523 1549; Sub 1369 1369 1549; Mul 1653 750 1653;
  Mul 1549 502 1372; Add 1653 1653 1549; Sub 1369 1369 1653; Add 1146 1146 1369; Mul 1146 536 1146;
  Mul 1369 824 1133; Add 1146 1146 1369; Sub 1537 1537 1146; Mul 1327 215 1327; Mul 1146 491 1580;
  Add 1327 1327 1146; Mul 1447 216 1447; Mul 1146 783 1148; Sub 1447 1447 1146; Sub 1327 1327 1447;
  Mul 1611 750 1611; Mul 1372 505 1372; Add 1611 1611 1372; Mul 1522 627 1522; Mul 1482 523 1482;
  Add 1522 1522 1482; Sub 1611 1611 1522; Add 1327 1327 1611; Mul 1327 526 1327; Mul 1611 825 1424;
  Add 1327 1327 1611; Sub 1537 1537 1327; Add 1103 1103 1537; Mul 1118 674 1118; Mul 1537 792 1143;
  Sub 1118 1118 1537; Add 1475 1475 1257; Mul 1257 298 1315; Sub 1305 1305 1444; Sub 1434 1434 1142;
  Sub 1415 1415 1308; Sub 1071 1071 1127; Add 1415 1415 1071; Add 1434 1434 1415; Add 1305 1305 1434;
  Mul 1127 676 1305; Add 1257 1257 1127; Sub 1475 1475 1257; Add 1118 1118 1475; Mul 1475 468 1580;
  Mul 1076 215 1076; Add 1475 1475 1076; Sub 1475 1475 1252; Add 1118 1118 1475; Mul 1118 216 1118;
  Mul 1475 823 1148; Sub 1118 1118 1475; Mul 1475 686 1667; Mul 1658 680 1658; Add 1475 1475 1658;
  Mul 1658 232 1315; Add 1232 1232 1554; Add 1188 1188 1374; Add 1052 1052 1280; Add 1278 1278 1700;
  Add 1052 1052 1278; Add 1188 1188 1052; Add 1232 1232 1188; Mul 1700 676 1232; Add 1658 1658 1700;
  Sub 1475 1475 1658; Add 1324 1324 1475; Add 1672 1672 1230; Mul 1383 216 1383; Mul 1230 461 1148;
  Sub 1383 1383 1230; Sub 1672 1672 1383; Add 1324 1324 1672; Mul 1324 215 1324; Mul 1672 668 1580;
  Add 1324 1324 1672; Sub 1118 1118 1324; Add 1617 1617 1349; Mul 1439 216 1439; Mul 1349 794 1148;
  Sub 1439 1439 1349; Sub 1617 1617 1439; Mul 1617 540 1617; Mul 1439 664 1313].
Definition casadi_f0_493 : list instruction := [
  Sub 1617 1617 1439; Mul 1439 808 1580; Mul 1545 215 1545; Add 1439 1439 1545; Sub 1439 1439 1497;
  Mul 1439 544 1439; Mul 1497 642 1049; Add 1439 1439 1497; Add 1617 1617 1439; Sub 1118 1118 1617;
  Add 1103 1103 1118; Mul 1103 1 1103; Mul 1118 760 1323; Add 1103 1103 1118; Add 1422 1422 1103;
  Mul 1648 674 1648; Mul 1103 233 1143; Sub 1648 1648 1103; Mul 1103 789 1667; Mul 1339 680 1339;
  Add 1103 1103 1339; Mul 1339 637 1315; Mul 1232 215 1232; Mul 1118 232 1580; Add 1232 1232 1118;
  Mul 1305 216 1305; Mul 1118 298 1148; Sub 1305 1305 1118; Sub 1232 1232 1305; Add 1077 1077 1232;
  Mul 1077 676 1077; Add 1339 1339 1077; Sub 1103 1103 1339; Add 1648 1648 1103; Sub 1638 1638 1459;
  Add 1648 1648 1638; Mul 1648 2 1648; Mul 1638 826 1488; Add 1648 1648 1638; Add 1422 1422 1648;
  Mul 1648 674 1207; Mul 1638 697 1143; Sub 1648 1648 1638; Mul 1638 695 1667; Mul 1459 680 1455;
  Add 1638 1638 1459; Mul 1459 647 1315; Mul 1103 216 1434; Mul 1339 411 1148; Sub 1103 1103 1339;
  Mul 1339 215 1188; Mul 1077 302 1580; Add 1339 1339 1077; Sub 1103 1103 1339; Add 1670 1670 1103;
  Mul 1103 676 1670; Add 1459 1459 1103; Sub 1638 1638 1459; Add 1648 1648 1638; Sub 1125 1125 1546;
  Add 1648 1648 1125; Mul 1648 3 1648; Mul 1125 347 1655; Add 1648 1648 1125; Add 1422 1422 1648;
  Mul 1648 674 1113; Mul 1125 811 1143; Sub 1648 1648 1125; Mul 1125 813 1667; Mul 1546 680 1187;
  Add 1125 1125 1546; Mul 1546 802 1315; Mul 1638 310 1052; Mul 1459 252 1628; Add 1638 1638 1459;
  Mul 1459 327 1415; Mul 1103 339 1275; Add 1459 1459 1103; Mul 1492 318 1492; Mul 1103 701 1687;
  Add 1339 1492 1103; Add 1459 1459 1339; Add 1638 1638 1459; Sub 1666 1666 1638; Mul 1638 676 1666;
  Add 1546 1546 1638; Sub 1125 1125 1546; Add 1648 1648 1125; Sub 1460 1460 1590; Add 1648 1648 1460;
  Mul 1648 4 1648; Mul 1460 698 1168; Add 1648 1648 1460; Add 1422 1422 1648; Mul 1648 674 1646;
  Mul 1460 820 1143; Sub 1648 1648 1460; Mul 1460 822 1667; Mul 1590 680 1373; Add 1460 1460 1590;
  Mul 1590 788 1315; Mul 1125 358 1278; Mul 1546 234 1435; Add 1125 1125 1546; Mul 1546 372 1071;
  Mul 1638 355 1625; Add 1546 1546 1638; Mul 1352 369 1352; Mul 1638 708 1423; Add 1459 1352 1638;
  Add 1546 1546 1459; Add 1125 1125 1546; Sub 1395 1395 1125; Mul 1125 676 1395; Add 1590 1590 1125;
  Sub 1460 1460 1590; Add 1648 1648 1460; Sub 1689 1689 1110; Add 1648 1648 1689; Mul 1648 5 1648;
  Mul 1689 809 1578; Add 1648 1648 1689; Add 1422 1422 1648; Sub 1430 1430 1422; Mul 1422 778 1430;
  Add 1594 1594 1422; Sub 1592 1592 1594; Div 1594 1028 92; Mul 1422 1516 1174; Sub 1594 1594 1422;
  Mul 1422 775 1594; Add 1631 1631 1149; Mul 1149 658 1216; Mul 1337 718 1337; Add 1149 1149 1337;
  Sub 1631 1631 1149; Mul 1149 635 1677; Mul 1489 714 1489; Add 1149 1149 1489; Sub 1631 1631 1149;
  Mul 1361 216 1361; Mul 1149 90 1148; Sub 1361 1361 1149; Mul 1149 566 1580; Mul 1507 215 1507;
  Add 1149 1149 1507; Sub 1361 1361 1149; Add 1631 1631 1361; Mul 1631 0 1631].
Definition casadi_f0_494 : list instruction := [
  Mul 1361 818 1524; Add 1631 1631 1361; Mul 1361 216 1172; Mul 1149 519 1148; Sub 1361 1361 1149;
  Sub 1361 1361 1677; Mul 1361 156 1361; Mul 1149 545 1361; Mul 1507 684 1426; Add 1149 1149 1507;
  Mul 1507 216 1621; Mul 1489 494 1148; Sub 1507 1507 1489; Mul 1489 215 1609; Mul 1337 497 1580;
  Add 1489 1489 1337; Add 1507 1507 1489; Sub 1507 1535 1507; Mul 1507 156 1507; Mul 1489 504 1507;
  Mul 1337 660 1224; Add 1489 1489 1337; Mul 1337 215 1172; Mul 1648 519 1580; Add 1337 1337 1648;
  Sub 1337 1337 1216; Mul 1337 156 1337; Mul 1648 541 1337; Mul 1689 827 1493; Add 1648 1648 1689;
  Sub 1489 1489 1648; Add 1149 1149 1489; Mul 1082 216 1082; Mul 1489 530 1148; Sub 1082 1082 1489;
  Mul 1288 215 1288; Mul 1489 513 1580; Add 1288 1288 1489; Sub 1082 1082 1288; Mul 1288 827 1621;
  Mul 1489 494 1337; Add 1288 1288 1489; Mul 1489 684 1609; Mul 1648 497 1361; Add 1489 1489 1648;
  Sub 1288 1288 1489; Add 1082 1082 1288; Mul 1288 508 1082; Mul 1489 656 1486; Add 1288 1288 1489;
  Mul 1433 216 1433; Mul 1489 481 1148; Sub 1433 1433 1489; Mul 1489 215 1060; Mul 1648 782 1580;
  Add 1489 1489 1648; Sub 1433 1433 1489; Mul 1489 684 1172; Mul 1648 519 1361; Add 1489 1489 1648;
  Mul 1621 660 1621; Mul 1648 494 1507; Add 1621 1621 1648; Sub 1489 1489 1621; Add 1433 1433 1489;
  Mul 1489 536 1433; Mul 1621 829 1133; Add 1489 1489 1621; Sub 1288 1288 1489; Mul 1060 216 1060;
  Mul 1489 782 1148; Sub 1060 1060 1489; Mul 1338 215 1338; Mul 1489 483 1580; Add 1338 1338 1489;
  Sub 1060 1060 1338; Mul 1609 660 1609; Mul 1338 497 1507; Add 1609 1609 1338; Mul 1172 827 1172;
  Mul 1338 519 1337; Add 1172 1172 1338; Sub 1609 1609 1172; Add 1060 1060 1609; Mul 1609 526 1060;
  Mul 1172 830 1424; Add 1609 1609 1172; Sub 1288 1288 1609; Add 1149 1149 1288; Mul 1288 411 1535;
  Mul 1434 716 1434; Add 1288 1288 1434; Add 1247 1247 1034; Sub 1288 1288 1247; Mul 1247 795 1677;
  Mul 1190 714 1190; Add 1247 1247 1190; Sub 1288 1288 1247; Mul 1247 416 1580; Mul 1022 215 1022;
  Add 1247 1247 1022; Sub 1250 1250 1247; Add 1288 1288 1250; Mul 1288 216 1288; Mul 1250 828 1148;
  Sub 1288 1288 1250; Mul 1250 302 1535; Mul 1188 716 1188; Add 1250 1250 1188; Mul 1188 448 1216;
  Mul 1343 718 1343; Add 1188 1188 1343; Sub 1250 1250 1188; Add 1131 1131 1181; Sub 1250 1250 1131;
  Mul 1607 216 1607; Mul 1131 414 1148; Sub 1607 1607 1131; Add 1526 1526 1094; Sub 1607 1607 1526;
  Add 1250 1250 1607; Mul 1250 215 1250; Mul 1607 832 1580; Add 1250 1250 1607; Sub 1607 1288 1250;
  Mul 1169 216 1169; Mul 1526 797 1148; Sub 1169 1169 1526; Add 1347 1347 1356; Sub 1169 1169 1347;
  Mul 1347 540 1169; Mul 1356 835 1313; Sub 1347 1347 1356; Mul 1356 415 1580; Mul 1243 215 1243;
  Add 1356 1356 1243; Sub 1329 1329 1356; Mul 1356 544 1329; Mul 1243 837 1049; Add 1356 1356 1243;
  Add 1347 1347 1356; Sub 1607 1607 1347; Add 1149 1149 1607; Mul 1149 1 1149; Mul 1607 632 1323;
  Add 1149 1149 1607; Add 1631 1631 1149; Mul 1361 678 1361; Mul 1149 684 1032].
Definition casadi_f0_495 : list instruction := [
  Add 1361 1361 1149; Mul 1337 673 1337; Mul 1149 827 1210; Add 1337 1337 1149; Mul 1507 799 1507;
  Mul 1149 660 1279; Add 1507 1507 1149; Add 1337 1337 1507; Add 1361 1361 1337; Mul 1060 602 1060;
  Mul 1337 830 1579; Add 1060 1060 1337; Mul 1433 670 1433; Mul 1337 829 1229; Add 1433 1433 1337;
  Mul 1082 671 1082; Mul 1337 656 1494; Add 1082 1082 1337; Sub 1433 1433 1082; Add 1060 1060 1433;
  Add 1361 1361 1060; Mul 1169 674 1169; Mul 1060 835 1143; Sub 1169 1169 1060; Mul 1329 680 1329;
  Mul 1060 837 1667; Add 1329 1329 1060; Mul 1302 216 1302; Mul 1060 403 1148; Sub 1302 1302 1060;
  Mul 1060 293 1580; Mul 1411 215 1411; Add 1060 1060 1411; Sub 1302 1302 1060; Mul 1302 676 1302;
  Mul 1060 839 1315; Add 1302 1302 1060; Sub 1329 1329 1302; Add 1169 1169 1329; Sub 1250 1250 1288;
  Add 1169 1169 1250; Add 1361 1361 1169; Mul 1361 2 1361; Mul 1169 834 1488; Add 1361 1361 1169;
  Add 1631 1631 1361; Mul 1361 647 1535; Mul 1670 716 1670; Add 1361 1361 1670; Mul 1670 695 1216;
  Mul 1455 718 1455; Add 1670 1670 1455; Sub 1361 1361 1670; Mul 1670 697 1677; Mul 1207 714 1207;
  Add 1670 1670 1207; Sub 1361 1361 1670; Add 1361 1361 1412; Mul 1361 3 1361; Mul 1412 836 1655;
  Add 1361 1361 1412; Add 1631 1631 1361; Mul 1361 802 1535; Mul 1412 716 1666; Add 1361 1361 1412;
  Mul 1412 813 1216; Mul 1670 718 1187; Add 1412 1412 1670; Sub 1361 1361 1412; Mul 1412 811 1677;
  Mul 1670 714 1113; Add 1412 1412 1670; Sub 1361 1361 1412; Add 1361 1361 1527; Mul 1361 4 1361;
  Mul 1527 702 1168; Add 1361 1361 1527; Add 1631 1631 1361; Mul 1361 788 1535; Mul 1527 716 1395;
  Add 1361 1361 1527; Mul 1527 822 1216; Mul 1412 718 1373; Add 1527 1527 1412; Sub 1361 1361 1527;
  Mul 1527 820 1677; Mul 1412 714 1646; Add 1527 1527 1412; Sub 1361 1361 1527; Add 1361 1361 1644;
  Mul 1361 5 1361; Mul 1644 810 1578; Add 1361 1361 1644; Add 1631 1631 1361; Add 1631 1631 1198;
  Mul 1198 769 1631; Sub 1422 1422 1198; Add 1592 1592 1422; Div 1422 1035 92; Mul 1198 1637 1174;
  Sub 1422 1422 1198; Mul 1198 815 1422; Mul 1361 640 1251; Mul 1565 725 1565; Add 1361 1361 1565;
  Mul 1565 662 1573; Mul 1692 731 1692; Add 1565 1565 1692; Add 1509 1509 1586; Add 1565 1565 1509;
  Add 1361 1361 1565; Mul 1565 580 1628; Mul 1506 310 1506; Add 1565 1565 1506; Mul 1506 59 1275;
  Mul 1370 327 1370; Add 1506 1506 1370; Add 1693 1693 1427; Add 1506 1506 1693; Add 1565 1565 1506;
  Sub 1361 1361 1565; Mul 1361 0 1361; Mul 1565 819 1524; Add 1361 1361 1565; Mul 1565 327 1502;
  Mul 1506 515 1275; Add 1565 1565 1506; Mul 1506 318 1662; Mul 1693 489 1687; Add 1506 1506 1693;
  Sub 1565 1565 1506; Sub 1565 1251 1565; Mul 1565 723 1565; Mul 1506 545 1565; Mul 1693 831 1426;
  Add 1506 1506 1693; Mul 1693 310 1662; Mul 1427 489 1628; Add 1693 1693 1427; Mul 1427 327 1525;
  Mul 1370 486 1275; Add 1427 1427 1370; Sub 1693 1693 1427; Sub 1693 1627 1693; Mul 1693 723 1693;
  Mul 1427 504 1693; Mul 1370 840 1224; Add 1427 1427 1370; Mul 1370 318 1525].
Definition casadi_f0_496 : list instruction := [
  Mul 1509 486 1687; Add 1370 1370 1509; Mul 1509 310 1502; Mul 1586 515 1628; Add 1509 1509 1586;
  Sub 1370 1370 1509; Sub 1370 1573 1370; Mul 1370 723 1370; Mul 1509 541 1370; Mul 1586 842 1493;
  Add 1509 1509 1586; Sub 1427 1427 1509; Add 1506 1506 1427; Mul 1427 842 1525; Mul 1509 486 1370;
  Add 1427 1427 1509; Mul 1509 831 1662; Mul 1586 489 1565; Add 1509 1509 1586; Sub 1427 1427 1509;
  Mul 1509 310 1701; Mul 1586 510 1628; Add 1509 1509 1586; Mul 1586 327 1577; Mul 1692 528 1275;
  Add 1586 1586 1692; Add 1509 1509 1586; Mul 1409 318 1409; Mul 1586 479 1687; Add 1409 1409 1586;
  Add 1509 1509 1409; Sub 1427 1427 1509; Mul 1509 508 1427; Mul 1409 841 1486; Add 1509 1509 1409;
  Mul 1409 831 1502; Mul 1586 515 1565; Add 1409 1409 1586; Mul 1525 840 1525; Mul 1586 486 1693;
  Add 1525 1525 1586; Sub 1409 1409 1525; Mul 1525 310 1162; Mul 1586 606 1628; Add 1525 1525 1586;
  Mul 1312 327 1312; Mul 1586 786 1275; Add 1312 1312 1586; Add 1525 1525 1312; Mul 1577 318 1577;
  Mul 1312 528 1687; Add 1577 1577 1312; Add 1525 1525 1577; Sub 1409 1409 1525; Mul 1525 536 1409;
  Mul 1577 844 1133; Add 1525 1525 1577; Sub 1509 1509 1525; Mul 1662 840 1662; Mul 1525 489 1693;
  Add 1662 1662 1525; Mul 1502 842 1502; Mul 1525 515 1370; Add 1502 1502 1525; Sub 1662 1662 1502;
  Mul 1270 310 1270; Mul 1502 705 1628; Add 1270 1270 1502; Mul 1162 327 1162; Mul 1502 606 1275;
  Add 1162 1162 1502; Add 1270 1270 1162; Mul 1701 318 1701; Mul 1162 510 1687; Add 1701 1701 1162;
  Add 1270 1270 1701; Sub 1662 1662 1270; Mul 1270 526 1662; Mul 1701 845 1424; Add 1270 1270 1701;
  Sub 1509 1509 1270; Add 1506 1506 1509; Add 1141 1141 1425; Mul 1425 800 1275; Mul 1562 327 1562;
  Add 1425 1425 1562; Mul 1562 643 1687; Mul 1416 318 1416; Add 1562 1562 1416; Add 1425 1425 1562;
  Add 1141 1141 1425; Mul 1425 540 1141; Mul 1562 843 1313; Sub 1425 1425 1562; Mul 1562 465 1628;
  Mul 1503 310 1503; Add 1562 1562 1503; Add 1539 1539 1368; Mul 1368 665 1687; Mul 1238 318 1238;
  Add 1368 1368 1238; Add 1539 1539 1368; Add 1562 1562 1539; Mul 1539 544 1562; Mul 1368 847 1049;
  Add 1539 1539 1368; Add 1425 1425 1539; Mul 1539 798 1251; Mul 1566 725 1566; Add 1539 1539 1566;
  Add 1025 1025 1401; Mul 1401 339 1627; Mul 1415 727 1415; Add 1401 1401 1415; Add 1025 1025 1401;
  Add 1539 1539 1025; Mul 1025 407 1628; Mul 1176 310 1176; Add 1025 1025 1176; Add 1588 1588 1018;
  Mul 1018 595 1687; Mul 1208 318 1208; Add 1018 1018 1208; Add 1588 1588 1018; Add 1025 1025 1588;
  Sub 1539 1539 1025; Mul 1539 216 1539; Mul 1025 848 1148; Sub 1539 1539 1025; Add 1108 1108 1402;
  Mul 1402 464 1573; Mul 1211 731 1211; Add 1402 1402 1211; Mul 1211 252 1627; Mul 1052 727 1052;
  Add 1211 1211 1052; Add 1402 1402 1211; Add 1108 1108 1402; Add 1454 1454 1332; Mul 1332 361 1275;
  Mul 1180 327 1180; Add 1332 1332 1180; Mul 1180 620 1687; Mul 1536 318 1536; Add 1180 1180 1536;
  Add 1332 1332 1180; Add 1454 1454 1332; Sub 1108 1108 1454; Mul 1108 215 1108].
Definition casadi_f0_497 : list instruction := [
  Mul 1454 850 1580; Add 1108 1108 1454; Sub 1454 1539 1108; Add 1425 1425 1454; Add 1506 1506 1425;
  Mul 1506 1 1506; Mul 1425 838 1323; Add 1506 1506 1425; Add 1361 1361 1506; Mul 1506 678 1565;
  Mul 1425 831 1032; Add 1506 1506 1425; Mul 1425 673 1370; Mul 1332 842 1210; Add 1425 1425 1332;
  Mul 1332 799 1693; Mul 1180 840 1279; Add 1332 1332 1180; Add 1425 1425 1332; Add 1506 1506 1425;
  Mul 1425 602 1662; Mul 1332 845 1579; Add 1425 1425 1332; Mul 1332 670 1409; Mul 1180 844 1229;
  Add 1332 1332 1180; Mul 1180 671 1427; Mul 1536 841 1494; Add 1180 1180 1536; Sub 1332 1332 1180;
  Add 1425 1425 1332; Add 1506 1506 1425; Mul 1425 785 1628; Mul 1599 310 1599; Add 1425 1425 1599;
  Mul 1599 306 1275; Mul 1147 327 1147; Add 1599 1599 1147; Add 1103 1103 1492; Add 1599 1599 1103;
  Add 1425 1425 1599; Mul 1599 676 1425; Mul 1103 853 1315; Add 1599 1599 1103; Mul 1103 680 1562;
  Mul 1492 847 1667; Add 1103 1103 1492; Sub 1599 1599 1103; Mul 1103 674 1141; Mul 1492 843 1143;
  Sub 1103 1103 1492; Sub 1599 1599 1103; Sub 1108 1108 1539; Add 1599 1599 1108; Add 1506 1506 1599;
  Mul 1506 2 1506; Mul 1599 846 1488; Add 1506 1506 1599; Add 1361 1361 1506; Mul 1565 717 1565;
  Mul 1506 831 1074; Add 1565 1565 1506; Mul 1693 787 1693; Mul 1506 840 1481; Add 1693 1693 1506;
  Mul 1370 713 1370; Mul 1506 842 1388; Add 1370 1370 1506; Sub 1693 1693 1370; Add 1565 1565 1693;
  Mul 1427 677 1427; Mul 1693 841 1326; Add 1427 1427 1693; Mul 1409 712 1409; Mul 1693 844 1271;
  Add 1409 1409 1693; Sub 1427 1427 1409; Mul 1662 706 1662; Mul 1409 845 1684; Add 1662 1662 1409;
  Sub 1427 1427 1662; Add 1565 1565 1427; Mul 1141 714 1141; Mul 1427 843 1677; Add 1141 1141 1427;
  Mul 1562 718 1562; Mul 1427 847 1216; Add 1562 1562 1427; Mul 1425 716 1425; Mul 1427 853 1535;
  Add 1425 1425 1427; Sub 1562 1562 1425; Add 1141 1141 1562; Add 1141 1141 1454; Add 1565 1565 1141;
  Mul 1565 3 1565; Mul 1141 854 1655; Add 1565 1565 1141; Add 1361 1361 1565; Mul 1565 811 1251;
  Mul 1113 725 1113; Add 1565 1565 1113; Mul 1113 813 1573; Mul 1187 731 1187; Add 1113 1113 1187;
  Mul 1187 802 1627; Mul 1666 727 1666; Add 1187 1187 1666; Add 1113 1113 1187; Add 1565 1565 1113;
  Mul 1113 807 1628; Mul 1239 310 1239; Add 1113 1113 1239; Mul 1239 690 1275; Mul 1272 327 1272;
  Add 1239 1239 1272; Mul 1272 720 1687; Mul 1559 318 1559; Add 1272 1272 1559; Add 1239 1239 1272;
  Add 1113 1113 1239; Sub 1565 1565 1113; Mul 1565 4 1565; Mul 1113 851 1168; Add 1565 1565 1113;
  Add 1361 1361 1565; Mul 1565 820 1251; Mul 1113 725 1646; Add 1565 1565 1113; Mul 1113 822 1573;
  Mul 1239 731 1373; Add 1113 1113 1239; Mul 1239 788 1627; Mul 1272 727 1395; Add 1239 1239 1272;
  Add 1113 1113 1239; Add 1565 1565 1113; Mul 1113 817 1628; Mul 1239 310 1237; Add 1113 1113 1239;
  Mul 1239 814 1275; Mul 1272 327 1228; Add 1239 1239 1272; Mul 1272 732 1687; Mul 1559 318 1365;
  Add 1272 1272 1559; Add 1239 1239 1272; Add 1113 1113 1239; Sub 1565 1565 1113].
Definition casadi_f0_498 : list instruction := [
  Mul 1565 5 1565; Mul 1113 852 1578; Add 1565 1565 1113; Add 1361 1361 1565; Sub 1253 1253 1361;
  Mul 1361 761 1253; Add 1198 1198 1361; Add 1592 1592 1198; Div 1198 1508 92; Mul 1361 1619 1174;
  Sub 1198 1198 1361; Mul 1361 833 1198; Mul 1565 645 1561; Mul 1659 736 1659; Add 1565 1565 1659;
  Mul 1659 666 1393; Mul 1394 741 1394; Add 1659 1659 1394; Add 1303 1303 1241; Add 1659 1659 1303;
  Add 1565 1565 1659; Mul 1659 593 1435; Mul 1691 358 1691; Add 1659 1659 1691; Mul 1691 36 1625;
  Mul 1274 372 1274; Add 1691 1691 1274; Add 1407 1407 1572; Add 1691 1691 1407; Add 1659 1659 1691;
  Sub 1565 1565 1659; Mul 1659 0 1565; Mul 1524 849 1524; Add 1659 1659 1524; Mul 1524 372 1087;
  Mul 1691 438 1625; Add 1524 1524 1691; Mul 1691 369 1457; Mul 1407 434 1423; Add 1691 1691 1407;
  Sub 1524 1524 1691; Sub 1524 1561 1524; Mul 1524 430 1524; Mul 1691 545 1524; Mul 1426 856 1426;
  Add 1691 1691 1426; Mul 1426 358 1457; Mul 1407 434 1435; Add 1426 1426 1407; Mul 1407 372 1449;
  Mul 1572 445 1625; Add 1407 1407 1572; Sub 1426 1426 1407; Sub 1426 1311 1426; Mul 1426 430 1426;
  Mul 1407 504 1426; Mul 1224 858 1224; Add 1407 1407 1224; Mul 1224 369 1449; Mul 1572 445 1423;
  Add 1224 1224 1572; Mul 1572 358 1087; Mul 1274 438 1435; Add 1572 1572 1274; Sub 1224 1224 1572;
  Sub 1224 1393 1224; Mul 1224 430 1224; Mul 1572 541 1224; Mul 1493 860 1493; Add 1572 1572 1493;
  Sub 1407 1407 1572; Add 1691 1691 1407; Mul 1407 860 1449; Mul 1572 445 1224; Add 1407 1407 1572;
  Mul 1572 856 1457; Mul 1493 434 1524; Add 1572 1572 1493; Sub 1407 1407 1572; Mul 1572 358 1062;
  Mul 1493 443 1435; Add 1572 1572 1493; Mul 1493 372 1360; Mul 1274 426 1625; Add 1493 1493 1274;
  Add 1572 1572 1493; Mul 1089 369 1089; Mul 1493 478 1423; Add 1089 1089 1493; Add 1572 1572 1089;
  Sub 1407 1407 1572; Mul 1572 508 1407; Mul 1486 859 1486; Add 1572 1572 1486; Mul 1486 856 1087;
  Mul 1089 438 1524; Add 1486 1486 1089; Mul 1449 858 1449; Mul 1089 445 1426; Add 1449 1449 1089;
  Sub 1486 1486 1449; Mul 1449 358 1348; Mul 1089 609 1435; Add 1449 1449 1089; Mul 1215 372 1215;
  Mul 1089 604 1625; Add 1215 1215 1089; Add 1449 1449 1215; Mul 1360 369 1360; Mul 1215 426 1423;
  Add 1360 1360 1215; Add 1449 1449 1360; Sub 1486 1486 1449; Mul 1449 536 1486; Mul 1133 862 1133;
  Add 1449 1449 1133; Sub 1572 1572 1449; Mul 1457 858 1457; Mul 1449 434 1426; Add 1457 1457 1449;
  Mul 1087 860 1087; Mul 1449 438 1224; Add 1087 1087 1449; Sub 1457 1457 1087; Mul 1087 13 1435;
  Mul 1496 358 1496; Sub 1087 1087 1496; Mul 1348 372 1348; Mul 1496 609 1625; Add 1348 1348 1496;
  Add 1087 1087 1348; Mul 1062 369 1062; Mul 1348 443 1423; Add 1062 1062 1348; Add 1087 1087 1062;
  Sub 1457 1457 1087; Mul 1087 526 1457; Mul 1424 863 1424; Add 1087 1087 1424; Sub 1572 1572 1087;
  Add 1691 1691 1572; Add 1016 1016 1358; Mul 1358 803 1625; Mul 1075 372 1075; Add 1358 1358 1075;
  Mul 1075 648 1423; Mul 1548 369 1548; Add 1075 1075 1548; Add 1358 1358 1075].
Definition casadi_f0_499 : list instruction := [
  Add 1016 1016 1358; Mul 1358 540 1016; Mul 1313 861 1313; Sub 1358 1358 1313; Mul 1313 394 1435;
  Mul 1608 358 1608; Add 1313 1313 1608; Add 1182 1182 1640; Mul 1640 669 1423; Mul 1345 369 1345;
  Add 1640 1640 1345; Add 1182 1182 1640; Add 1313 1313 1182; Mul 1182 544 1313; Mul 1049 865 1049;
  Add 1182 1182 1049; Add 1358 1358 1182; Mul 1182 801 1561; Mul 1461 736 1461; Add 1182 1182 1461;
  Add 1696 1696 1042; Mul 1042 355 1311; Mul 1071 738 1071; Add 1042 1042 1071; Add 1696 1696 1042;
  Add 1182 1182 1696; Mul 1696 359 1435; Mul 1378 358 1378; Add 1696 1696 1378; Add 1620 1620 1647;
  Mul 1647 608 1423; Mul 1551 369 1551; Add 1647 1647 1551; Add 1620 1620 1647; Add 1696 1696 1620;
  Sub 1182 1182 1696; Mul 1696 216 1182; Mul 1148 866 1148; Sub 1696 1696 1148; Add 1097 1097 1665;
  Mul 1665 457 1393; Mul 1335 741 1335; Add 1665 1665 1335; Mul 1335 234 1311; Mul 1278 738 1278;
  Add 1335 1335 1278; Add 1665 1665 1335; Add 1097 1097 1665; Add 1464 1464 1690; Mul 1690 352 1625;
  Mul 1152 372 1152; Add 1690 1690 1152; Mul 1152 622 1423; Mul 1571 369 1571; Add 1152 1152 1571;
  Add 1690 1690 1152; Add 1464 1464 1690; Sub 1097 1097 1464; Mul 1464 215 1097; Mul 1580 868 1580;
  Add 1464 1464 1580; Sub 1580 1696 1464; Add 1358 1358 1580; Add 1691 1691 1358; Mul 1691 1 1691;
  Mul 1323 857 1323; Add 1691 1691 1323; Add 1659 1659 1691; Mul 1691 678 1524; Mul 1032 856 1032;
  Add 1691 1691 1032; Mul 1032 673 1224; Mul 1210 860 1210; Add 1032 1032 1210; Mul 1210 799 1426;
  Mul 1279 858 1279; Add 1210 1210 1279; Add 1032 1032 1210; Add 1691 1691 1032; Mul 1032 602 1457;
  Mul 1579 863 1579; Add 1032 1032 1579; Mul 1579 670 1486; Mul 1229 862 1229; Add 1579 1579 1229;
  Mul 1229 671 1407; Mul 1494 859 1494; Add 1229 1229 1494; Sub 1579 1579 1229; Add 1032 1032 1579;
  Add 1691 1691 1032; Mul 1032 245 1435; Mul 1254 358 1254; Add 1032 1032 1254; Mul 1254 356 1625;
  Mul 1206 372 1206; Add 1254 1254 1206; Add 1638 1638 1352; Add 1254 1254 1638; Add 1032 1032 1254;
  Mul 1254 676 1032; Mul 1315 871 1315; Add 1254 1254 1315; Mul 1315 680 1313; Mul 1667 865 1667;
  Add 1315 1315 1667; Sub 1254 1254 1315; Mul 1315 674 1016; Mul 1143 861 1143; Sub 1315 1315 1143;
  Sub 1254 1254 1315; Sub 1464 1464 1696; Add 1254 1254 1464; Add 1691 1691 1254; Mul 1691 2 1691;
  Mul 1488 864 1488; Add 1691 1691 1488; Add 1659 1659 1691; Mul 1691 717 1524; Mul 1074 856 1074;
  Add 1691 1691 1074; Mul 1074 787 1426; Mul 1481 858 1481; Add 1074 1074 1481; Mul 1481 713 1224;
  Mul 1388 860 1388; Add 1481 1481 1388; Sub 1074 1074 1481; Add 1691 1691 1074; Mul 1074 677 1407;
  Mul 1326 859 1326; Add 1074 1074 1326; Mul 1326 712 1486; Mul 1271 862 1271; Add 1326 1326 1271;
  Sub 1074 1074 1326; Mul 1326 706 1457; Mul 1684 863 1684; Add 1326 1326 1684; Sub 1074 1074 1326;
  Add 1691 1691 1074; Mul 1074 714 1016; Mul 1677 861 1677; Add 1074 1074 1677; Mul 1677 718 1313;
  Mul 1216 865 1216; Add 1677 1677 1216; Mul 1216 716 1032; Mul 1535 871 1535].
Definition casadi_f0_500 : list instruction := [
  Add 1216 1216 1535; Sub 1677 1677 1216; Add 1074 1074 1677; Add 1074 1074 1580; Add 1691 1691 1074;
  Mul 1691 3 1691; Mul 1655 872 1655; Add 1691 1691 1655; Add 1659 1659 1691; Mul 1524 729 1524;
  Mul 1047 856 1047; Add 1524 1524 1047; Mul 1224 724 1224; Mul 1584 860 1584; Add 1224 1224 1584;
  Mul 1426 688 1426; Mul 1314 858 1314; Add 1426 1426 1314; Add 1224 1224 1426; Add 1524 1524 1224;
  Mul 1457 715 1457; Mul 1618 863 1618; Add 1457 1457 1618; Mul 1486 721 1486; Mul 1529 862 1529;
  Add 1486 1486 1529; Mul 1407 722 1407; Mul 1555 859 1555; Add 1407 1407 1555; Add 1486 1486 1407;
  Add 1457 1457 1486; Add 1524 1524 1457; Mul 1016 725 1016; Mul 1251 861 1251; Add 1016 1016 1251;
  Mul 1313 731 1313; Mul 1573 865 1573; Add 1313 1313 1573; Mul 1032 727 1032; Mul 1627 871 1627;
  Add 1032 1032 1627; Add 1313 1313 1032; Add 1016 1016 1313; Mul 1097 310 1097; Mul 1628 868 1628;
  Add 1097 1097 1628; Mul 1182 327 1182; Mul 1275 866 1275; Add 1182 1182 1275; Mul 1565 318 1565;
  Mul 1687 849 1687; Add 1565 1565 1687; Add 1182 1182 1565; Add 1097 1097 1182; Add 1016 1016 1097;
  Sub 1524 1524 1016; Mul 1524 4 1524; Mul 1168 869 1168; Add 1524 1524 1168; Add 1659 1659 1524;
  Mul 1561 820 1561; Mul 1646 736 1646; Add 1561 1561 1646; Mul 1393 822 1393; Mul 1373 741 1373;
  Add 1393 1393 1373; Mul 1311 788 1311; Mul 1395 738 1395; Add 1311 1311 1395; Add 1393 1393 1311;
  Add 1561 1561 1393; Mul 1435 817 1435; Mul 1237 358 1237; Add 1435 1435 1237; Mul 1625 814 1625;
  Mul 1228 372 1228; Add 1625 1625 1228; Mul 1423 732 1423; Mul 1365 369 1365; Add 1423 1423 1365;
  Add 1625 1625 1423; Add 1435 1435 1625; Sub 1561 1561 1435; Mul 1561 5 1561; Mul 1578 870 1578;
  Add 1561 1561 1578; Add 1659 1659 1561; Sub 1100 1100 1659; Mul 1659 754 1100; Add 1361 1361 1659;
  Add 1592 1592 1361; Mul 1361 210 1508; Mul 1659 200 1678; Add 1361 1361 1659; Mul 1020 19 1020;
  Mul 1659 196 1290; Sub 1020 1020 1659; Mul 1659 189 1382; Mul 1612 35 1612; Sub 1659 1659 1612;
  Sub 1020 1020 1659; Mul 1443 55 1443; Mul 1245 62 1245; Add 1443 1443 1245; Add 1020 1020 1443;
  Mul 1408 86 1408; Mul 1635 91 1635; Add 1408 1408 1635; Add 1408 1020 1408; Mul 1490 102 1490;
  Sub 1490 1408 1490; Mul 1635 777 1490; Mul 1443 209 1448; Add 1635 1635 1443; Add 1361 1361 1635;
  Mul 1635 778 1408; Mul 1443 867 1483; Add 1635 1635 1443; Add 1361 1361 1635; Mul 1635 769 1020;
  Mul 1443 855 1594; Add 1635 1635 1443; Add 1361 1361 1635; Mul 1635 761 1292; Mul 1443 201 1422;
  Add 1635 1635 1443; Sub 1361 1361 1635; Mul 1635 873 1198; Add 1361 1361 1635; Mul 1635 1006 1361;
  Mul 1443 210 1361; Mul 1245 756 1678; Add 1443 1443 1245; Sub 1508 1508 1443; Mul 1443 881 1508;
  Mul 1245 210 1498; Mul 1659 143 1678; Add 1245 1245 1659; Sub 1669 1669 1217; Sub 1371 1371 1265;
  Mul 1371 37 1371; Add 1669 1669 1371; Sub 1661 1661 1322; Mul 1661 80 1661; Add 1661 1669 1661;
  Sub 1636 1636 1600; Mul 1636 100 1636; Add 1636 1661 1636; Mul 1083 1064 1083].
