(* ===== verification/MpcForward.v ===== *)
(** * The equations of motion of the MPC model with their sensitivities

    willow_mpc_expl_vde_forw.c, generated by CasADi: the derivative of the state
    and of its sensitivities to the first state and to the torques. *)

From stdpp Require Import strings.
From S2P Require Import Prelude Casadi MpcForward1.

#[local] Open Scope string_scope.
#[local] Open Scope list_scope.

Definition casadi_s0 : list Z := [12; 1; 0; 12; 0; 1; 2; 3; 4; 5; 6; 7; 8; 9; 10; 11].
Definition casadi_s1 : list Z :=
  [12; 12; 0; 12; 24; 36; 48; 60; 72; 84; 96; 108; 120; 132; 144; 0; 1; 2; 3; 4; 5; 6; 7; 8; 9; 10; 11; 0; 1; 2; 3; 4; 5; 6; 7; 8; 9; 10; 11; 0; 1; 2; 3; 4; 5; 6; 7; 8; 9; 10; 11; 0; 1; 2; 3; 4; 5; 6; 7; 8; 9; 10; 11; 0; 1; 2; 3; 4; 5; 6; 7; 8; 9; 10; 11; 0; 1; 2; 3; 4; 5; 6; 7; 8; 9; 10; 11; 0; 1; 2; 3; 4; 5; 6; 7; 8; 9; 10; 11; 0; 1; 2; 3; 4; 5; 6; 7; 8; 9; 10; 11; 0; 1; 2; 3; 4; 5; 6; 7; 8; 9; 10; 11; 0; 1; 2; 3; 4; 5; 6; 7; 8; 9; 10; 11; 0; 1; 2; 3; 4; 5; 6; 7; 8; 9; 10; 11; 0; 1; 2; 3; 4; 5; 6; 7; 8; 9; 10; 11].
Definition casadi_s2 : list Z :=
  [12; 6; 0; 12; 24; 36; 48; 60; 72; 0; 1; 2; 3; 4; 5; 6; 7; 8; 9; 10; 11; 0; 1; 2; 3; 4; 5; 6; 7; 8; 9; 10; 11; 0; 1; 2; 3; 4; 5; 6; 7; 8; 9; 10; 11; 0; 1; 2; 3; 4; 5; 6; 7; 8; 9; 10; 11; 0; 1; 2; 3; 4; 5; 6; 7; 8; 9; 10; 11; 0; 1; 2; 3; 4; 5; 6; 7; 8; 9; 10; 11].
Definition casadi_s3 : list Z := [6; 1; 0; 6; 0; 1; 2; 3; 4; 5].
Definition casadi_s4 : list Z := [0; 0; 0].

Definition casadi_f0_locals : N := 1708.

Definition casadi_f0_501 : list instruction := [
  Mul 1170 1061 1170; Add 1083 1083 1170; Mul 1083 141 1083; Add 1636 1636 1083; Mul 1083 777 1636;
  Mul 1170 876 1448; Add 1083 1083 1170; Add 1245 1245 1083; Mul 1377 151 1377; Mul 1410 103 1410;
  Add 1377 1377 1410; Mul 1385 148 1385; Mul 1048 105 1048; Add 1385 1385 1048; Sub 1377 1377 1385;
  Sub 1377 1377 1661; Mul 1092 102 1092; Sub 1092 1377 1092; Mul 1661 778 1092; Mul 1385 153 1483;
  Add 1661 1661 1385; Sub 1245 1245 1661; Mul 1676 1057 1676; Mul 1560 1065 1560; Sub 1676 1676 1560;
  Mul 1676 156 1676; Add 1669 1669 1676; Mul 1026 86 1026; Mul 1514 91 1514; Sub 1026 1026 1514;
  Add 1026 1669 1026; Mul 1136 102 1136; Sub 1136 1026 1136; Mul 1514 769 1136; Mul 1676 171 1594;
  Add 1514 1514 1676; Add 1245 1245 1514; Mul 1382 180 1382; Mul 1485 35 1485; Add 1382 1382 1485;
  Mul 1298 19 1298; Mul 1290 182 1290; Sub 1298 1298 1290; Sub 1382 1382 1298; Mul 1531 55 1531;
  Add 1382 1382 1531; Mul 1591 86 1591; Mul 1284 91 1284; Add 1591 1591 1284; Add 1591 1382 1591;
  Mul 1291 102 1291; Sub 1291 1591 1291; Mul 1284 761 1291; Mul 1531 188 1422; Add 1284 1284 1531;
  Add 1245 1245 1284; Mul 1284 754 1490; Mul 1531 209 1198; Add 1284 1284 1531; Add 1245 1245 1284;
  Mul 1284 210 1245; Mul 1531 875 1678; Add 1284 1284 1531; Sub 1498 1498 1284; Div 1284 1498 65;
  Mul 1498 89 1498; Mul 1531 777 1245; Mul 1298 875 1448; Add 1531 1531 1298; Sub 1636 1636 1531;
  Mul 1531 58 1636; Add 1498 1498 1531; Mul 1531 778 1245; Mul 1298 875 1483; Add 1531 1531 1298;
  Add 1531 1092 1531; Mul 1298 45 1531; Add 1498 1498 1298; Mul 1298 769 1245; Mul 1290 875 1594;
  Add 1298 1298 1290; Sub 1298 1136 1298; Mul 1290 22 1298; Add 1498 1498 1290; Mul 1290 761 1245;
  Mul 1485 875 1422; Add 1290 1290 1485; Sub 1290 1291 1290; Mul 1485 879 1290; Add 1498 1498 1485;
  Mul 1485 754 1245; Mul 1514 875 1198; Add 1485 1485 1514; Sub 1485 1490 1485; Mul 1514 880 1485;
  Add 1498 1498 1514; Div 1498 1498 1045; Mul 1514 1078 1498; Sub 1284 1284 1514; Mul 1514 874 1284;
  Add 1443 1443 1514; Mul 1514 777 1361; Mul 1676 756 1448; Add 1514 1514 1676; Sub 1490 1490 1514;
  Mul 1514 884 1490; Div 1636 1636 65; Mul 1676 1029 1498; Sub 1636 1636 1676; Mul 1676 883 1636;
  Add 1514 1514 1676; Add 1443 1443 1514; Mul 1514 778 1361; Mul 1676 756 1483; Add 1514 1514 1676;
  Sub 1514 1514 1408; Mul 1676 886 1514; Div 1531 1531 65; Mul 1560 1063 1498; Sub 1531 1531 1560;
  Mul 1560 885 1531; Add 1676 1676 1560; Add 1443 1443 1676; Mul 1676 769 1361; Mul 1560 756 1594;
  Add 1676 1676 1560; Sub 1676 1020 1676; Mul 1560 888 1676; Div 1298 1298 65; Mul 1661 1040 1498;
  Sub 1298 1298 1661; Mul 1661 887 1298; Add 1560 1560 1661; Add 1443 1443 1560; Mul 1560 761 1361;
  Mul 1661 756 1422; Add 1560 1560 1661; Add 1560 1292 1560; Mul 1661 890 1560; Div 1290 1290 65;
  Mul 1385 1027 1498; Sub 1290 1290 1385; Mul 1385 889 1290; Add 1661 1661 1385; Sub 1443 1443 1661;
  Div 1485 1485 65; Mul 1661 1046 1498; Sub 1485 1485 1661; Mul 1661 891 1485].
Definition casadi_f0_502 : list instruction := [
  Mul 1361 754 1361; Mul 1385 756 1198; Add 1361 1361 1385; Mul 1385 892 1361; Sub 1661 1661 1385;
  Add 1443 1443 1661; Mul 1661 881 1443; Mul 1385 882 1284; Add 1661 1661 1385; Sub 1508 1508 1661;
  Mul 1661 884 1443; Mul 1385 882 1636; Add 1661 1661 1385; Sub 1490 1490 1661; Mul 1661 910 1490;
  Mul 1385 777 1092; Mul 1048 153 1448; Add 1385 1385 1048; Mul 1048 210 1462; Mul 1410 154 1678;
  Add 1048 1048 1410; Sub 1385 1385 1048; Mul 1048 778 1377; Mul 1410 106 1483; Add 1048 1048 1410;
  Add 1385 1385 1048; Mul 1048 769 1026; Mul 1410 877 1594; Add 1048 1048 1410; Sub 1385 1385 1048;
  Mul 1048 761 1591; Mul 1410 94 1422; Add 1048 1048 1410; Sub 1385 1385 1048; Mul 1048 754 1408;
  Mul 1410 867 1198; Add 1048 1048 1410; Sub 1385 1385 1048; Mul 1048 777 1385; Mul 1410 895 1448;
  Add 1048 1048 1410; Sub 1092 1092 1048; Mul 1048 884 1092; Mul 1410 896 1636; Add 1048 1048 1410;
  Mul 1410 210 1385; Mul 1083 895 1678; Add 1410 1410 1083; Add 1462 1462 1410; Mul 1410 881 1462;
  Mul 1083 898 1284; Add 1410 1410 1083; Sub 1048 1048 1410; Mul 1410 778 1385; Mul 1083 895 1483;
  Add 1410 1410 1083; Sub 1410 1410 1377; Mul 1377 886 1410; Mul 1083 899 1531; Add 1377 1377 1083;
  Add 1048 1048 1377; Mul 1377 769 1385; Mul 1083 895 1594; Add 1377 1377 1083; Add 1377 1026 1377;
  Mul 1083 888 1377; Mul 1170 900 1298; Add 1083 1083 1170; Sub 1048 1048 1083; Mul 1083 761 1385;
  Mul 1170 895 1422; Add 1083 1083 1170; Add 1083 1591 1083; Mul 1170 890 1083; Mul 1600 901 1290;
  Add 1170 1170 1600; Sub 1048 1048 1170; Mul 1170 754 1385; Mul 1600 895 1198; Add 1170 1170 1600;
  Add 1408 1408 1170; Mul 1170 892 1408; Mul 1600 902 1485; Add 1170 1170 1600; Sub 1048 1048 1170;
  Mul 1170 884 1048; Mul 1600 897 1636; Add 1170 1170 1600; Sub 1092 1092 1170; Div 1170 1092 905;
  Mul 1600 881 1048; Mul 1322 897 1284; Add 1600 1600 1322; Add 1462 1462 1600; Mul 1600 904 1462;
  Mul 1092 903 1092; Add 1600 1600 1092; Mul 1092 886 1048; Mul 1322 897 1531; Add 1092 1092 1322;
  Sub 1410 1410 1092; Mul 1092 906 1410; Add 1600 1600 1092; Mul 1092 888 1048; Mul 1322 897 1298;
  Add 1092 1092 1322; Add 1377 1377 1092; Mul 1092 907 1377; Add 1600 1600 1092; Mul 1092 890 1048;
  Mul 1322 897 1290; Add 1092 1092 1322; Add 1083 1083 1092; Mul 1092 908 1083; Add 1600 1600 1092;
  Mul 1092 892 1048; Mul 1322 897 1485; Add 1092 1092 1322; Add 1408 1408 1092; Mul 1092 909 1408;
  Add 1600 1600 1092; Div 1600 1600 1067; Mul 1092 1214 1600; Sub 1170 1170 1092; Mul 1092 894 1170;
  Add 1661 1661 1092; Mul 1092 912 1508; Div 1462 1462 905; Mul 1322 1614 1600; Sub 1462 1462 1322;
  Mul 1322 893 1462; Add 1092 1092 1322; Sub 1661 1661 1092; Mul 1092 886 1443; Mul 1322 882 1531;
  Add 1092 1092 1322; Sub 1514 1514 1092; Mul 1092 914 1514; Div 1410 1410 905; Mul 1322 1273 1600;
  Sub 1410 1410 1322; Mul 1322 913 1410; Add 1092 1092 1322; Add 1661 1661 1092; Mul 1092 888 1443;
  Mul 1322 882 1298; Add 1092 1092 1322; Sub 1676 1676 1092; Mul 1092 916 1676].
Definition casadi_f0_503 : list instruction := [
  Div 1377 1377 905; Mul 1322 1260 1600; Sub 1377 1377 1322; Mul 1322 915 1377; Add 1092 1092 1322;
  Sub 1661 1661 1092; Mul 1092 890 1443; Mul 1322 882 1290; Add 1092 1092 1322; Add 1560 1560 1092;
  Mul 1092 918 1560; Div 1083 1083 905; Mul 1322 1249 1600; Sub 1083 1083 1322; Mul 1322 917 1083;
  Add 1092 1092 1322; Add 1661 1661 1092; Div 1408 1408 905; Mul 1092 1569 1600; Sub 1408 1408 1092;
  Mul 1092 919 1408; Mul 1322 892 1443; Mul 1371 882 1485; Add 1322 1322 1371; Add 1361 1361 1322;
  Mul 1322 920 1361; Sub 1092 1092 1322; Sub 1661 1661 1092; Mul 1092 912 1661; Mul 1322 911 1462;
  Add 1092 1092 1322; Add 1508 1508 1092; Mul 1092 944 1508; Mul 1322 210 1028; Mul 1371 168 1678;
  Add 1322 1322 1371; Mul 1371 777 1136; Mul 1265 171 1448; Add 1371 1371 1265; Add 1322 1322 1371;
  Mul 1371 778 1026; Mul 1265 877 1483; Add 1371 1371 1265; Add 1322 1322 1371; Mul 1371 769 1669;
  Mul 1265 878 1594; Add 1371 1371 1265; Add 1322 1322 1371; Mul 1371 761 1382; Mul 1265 98 1422;
  Add 1371 1371 1265; Add 1322 1322 1371; Mul 1371 754 1020; Mul 1265 855 1198; Add 1371 1371 1265;
  Add 1322 1322 1371; Mul 1371 210 1322; Mul 1265 922 1678; Add 1371 1371 1265; Sub 1028 1028 1371;
  Mul 1371 881 1028; Mul 1265 923 1284; Add 1371 1371 1265; Mul 1265 777 1322; Mul 1217 922 1448;
  Add 1265 1265 1217; Sub 1136 1136 1265; Mul 1265 884 1136; Mul 1217 925 1636; Add 1265 1265 1217;
  Add 1371 1371 1265; Mul 1265 778 1322; Mul 1217 922 1483; Add 1265 1265 1217; Sub 1265 1265 1026;
  Mul 1026 886 1265; Mul 1217 926 1531; Add 1026 1026 1217; Add 1371 1371 1026; Mul 1026 769 1322;
  Mul 1217 922 1594; Add 1026 1026 1217; Sub 1669 1669 1026; Mul 1026 888 1669; Mul 1217 927 1298;
  Add 1026 1026 1217; Add 1371 1371 1026; Mul 1026 761 1322; Mul 1217 922 1422; Add 1026 1026 1217;
  Sub 1026 1382 1026; Mul 1217 890 1026; Mul 1659 928 1290; Add 1217 1217 1659; Add 1371 1371 1217;
  Mul 1217 754 1322; Mul 1659 922 1198; Add 1217 1217 1659; Sub 1020 1020 1217; Mul 1217 892 1020;
  Mul 1659 929 1485; Add 1217 1217 1659; Add 1371 1371 1217; Mul 1217 881 1371; Mul 1659 924 1284;
  Add 1217 1217 1659; Sub 1028 1028 1217; Mul 1217 884 1371; Mul 1659 924 1636; Add 1217 1217 1659;
  Sub 1136 1136 1217; Mul 1217 910 1136; Mul 1659 931 1170; Add 1217 1217 1659; Mul 1659 912 1028;
  Mul 1612 930 1462; Add 1659 1659 1612; Sub 1217 1217 1659; Mul 1659 886 1371; Mul 1612 924 1531;
  Add 1659 1659 1612; Sub 1265 1265 1659; Mul 1659 914 1265; Mul 1612 933 1410; Add 1659 1659 1612;
  Add 1217 1217 1659; Mul 1659 888 1371; Mul 1612 924 1298; Add 1659 1659 1612; Sub 1669 1669 1659;
  Mul 1659 916 1669; Mul 1612 934 1377; Add 1659 1659 1612; Sub 1217 1217 1659; Mul 1659 890 1371;
  Mul 1612 924 1290; Add 1659 1659 1612; Sub 1026 1026 1659; Mul 1659 918 1026; Mul 1612 935 1083;
  Add 1659 1659 1612; Sub 1217 1217 1659; Mul 1659 892 1371; Mul 1612 924 1485; Add 1659 1659 1612;
  Sub 1020 1020 1659; Mul 1659 920 1020; Mul 1612 936 1408; Add 1659 1659 1612].
Definition casadi_f0_504 : list instruction := [
  Sub 1217 1217 1659; Mul 1659 912 1217; Mul 1612 932 1462; Add 1659 1659 1612; Add 1028 1028 1659;
  Div 1659 1028 938; Mul 1028 937 1028; Mul 1612 910 1217; Mul 1561 932 1170; Add 1612 1612 1561;
  Sub 1136 1136 1612; Mul 1612 939 1136; Add 1028 1028 1612; Mul 1612 914 1217; Mul 1561 932 1410;
  Add 1612 1612 1561; Sub 1265 1265 1612; Mul 1612 940 1265; Add 1028 1028 1612; Mul 1612 916 1217;
  Mul 1561 932 1377; Add 1612 1612 1561; Add 1669 1669 1612; Mul 1612 941 1669; Add 1028 1028 1612;
  Mul 1612 918 1217; Mul 1561 932 1083; Add 1612 1612 1561; Add 1026 1026 1612; Mul 1612 942 1026;
  Add 1028 1028 1612; Mul 1612 920 1217; Mul 1561 932 1408; Add 1612 1612 1561; Add 1020 1020 1612;
  Mul 1612 943 1020; Add 1028 1028 1612; Div 1028 1028 1615; Mul 1612 1446 1028; Sub 1659 1659 1612;
  Mul 1612 921 1659; Add 1092 1092 1612; Mul 1612 910 1661; Mul 1561 911 1170; Add 1612 1612 1561;
  Sub 1490 1490 1612; Mul 1612 947 1490; Div 1136 1136 938; Mul 1561 1184 1028; Sub 1136 1136 1561;
  Mul 1561 946 1136; Add 1612 1612 1561; Add 1092 1092 1612; Mul 1612 914 1661; Mul 1561 911 1410;
  Add 1612 1612 1561; Sub 1514 1514 1612; Mul 1612 949 1514; Div 1265 1265 938; Mul 1561 1160 1028;
  Sub 1265 1265 1561; Mul 1561 948 1265; Add 1612 1612 1561; Add 1092 1092 1612; Mul 1612 916 1661;
  Mul 1561 911 1377; Add 1612 1612 1561; Add 1676 1676 1612; Mul 1612 951 1676; Div 1669 1669 938;
  Mul 1561 1328 1028; Sub 1669 1669 1561; Mul 1561 950 1669; Add 1612 1612 1561; Add 1092 1092 1612;
  Mul 1612 918 1661; Mul 1561 911 1083; Add 1612 1612 1561; Sub 1612 1612 1560; Mul 1560 953 1612;
  Div 1026 1026 938; Mul 1561 1155 1028; Sub 1026 1026 1561; Mul 1561 952 1026; Add 1560 1560 1561;
  Add 1092 1092 1560; Mul 1560 920 1661; Mul 1561 911 1408; Add 1560 1560 1561; Sub 1560 1560 1361;
  Mul 1361 955 1560; Div 1020 1020 938; Mul 1561 1220 1028; Sub 1020 1020 1561; Mul 1561 954 1020;
  Add 1361 1361 1561; Add 1092 1092 1361; Mul 1361 944 1092; Mul 1561 945 1659; Add 1361 1361 1561;
  Sub 1508 1508 1361; Mul 1361 986 1508; Mul 1561 210 1035; Mul 1578 175 1678; Add 1561 1561 1578;
  Mul 1578 777 1291; Mul 1435 188 1448; Add 1578 1578 1435; Add 1561 1561 1578; Mul 1578 778 1591;
  Mul 1435 94 1483; Add 1578 1578 1435; Add 1561 1561 1578; Mul 1578 769 1382; Mul 1435 98 1594;
  Add 1578 1578 1435; Add 1561 1561 1578; Mul 1578 761 1521; Mul 1435 172 1422; Add 1578 1578 1435;
  Sub 1561 1561 1578; Mul 1578 754 1292; Mul 1435 201 1198; Add 1578 1578 1435; Sub 1561 1561 1578;
  Mul 1578 210 1561; Mul 1678 957 1678; Add 1578 1578 1678; Sub 1035 1035 1578; Mul 1578 881 1035;
  Mul 1678 958 1284; Add 1578 1578 1678; Mul 1678 777 1561; Mul 1448 957 1448; Add 1678 1678 1448;
  Sub 1291 1291 1678; Mul 1678 884 1291; Mul 1448 960 1636; Add 1678 1678 1448; Add 1578 1578 1678;
  Mul 1678 778 1561; Mul 1483 957 1483; Add 1678 1678 1483; Sub 1678 1678 1591; Mul 1591 886 1678;
  Mul 1483 961 1531; Add 1591 1591 1483; Add 1578 1578 1591; Mul 1591 769 1561].
Definition casadi_f0_505 : list instruction := [
  Mul 1594 957 1594; Add 1591 1591 1594; Sub 1382 1382 1591; Mul 1591 888 1382; Mul 1594 962 1298;
  Add 1591 1591 1594; Add 1578 1578 1591; Mul 1591 761 1561; Mul 1422 957 1422; Add 1591 1591 1422;
  Add 1521 1521 1591; Mul 1591 890 1521; Mul 1422 963 1290; Add 1591 1591 1422; Sub 1578 1578 1591;
  Mul 1591 754 1561; Mul 1198 957 1198; Add 1591 1591 1198; Add 1292 1292 1591; Mul 1591 892 1292;
  Mul 1198 964 1485; Add 1591 1591 1198; Sub 1578 1578 1591; Mul 1591 881 1578; Mul 1198 959 1284;
  Add 1591 1591 1198; Sub 1035 1035 1591; Mul 1591 884 1578; Mul 1198 959 1636; Add 1591 1591 1198;
  Sub 1291 1291 1591; Mul 1591 910 1291; Mul 1198 966 1170; Add 1591 1591 1198; Mul 1198 912 1035;
  Mul 1422 965 1462; Add 1198 1198 1422; Sub 1591 1591 1198; Mul 1198 886 1578; Mul 1422 959 1531;
  Add 1198 1198 1422; Sub 1678 1678 1198; Mul 1198 914 1678; Mul 1422 968 1410; Add 1198 1198 1422;
  Add 1591 1591 1198; Mul 1198 888 1578; Mul 1422 959 1298; Add 1198 1198 1422; Sub 1382 1382 1198;
  Mul 1198 916 1382; Mul 1422 969 1377; Add 1198 1198 1422; Sub 1591 1591 1198; Mul 1198 890 1578;
  Mul 1422 959 1290; Add 1198 1198 1422; Add 1521 1521 1198; Mul 1198 918 1521; Mul 1422 970 1083;
  Add 1198 1198 1422; Add 1591 1591 1198; Mul 1198 892 1578; Mul 1422 959 1485; Add 1198 1198 1422;
  Add 1292 1292 1198; Mul 1198 920 1292; Mul 1422 971 1408; Add 1198 1198 1422; Add 1591 1591 1198;
  Mul 1198 912 1591; Mul 1422 967 1462; Add 1198 1198 1422; Add 1035 1035 1198; Mul 1198 944 1035;
  Mul 1422 972 1659; Add 1198 1198 1422; Mul 1422 910 1591; Mul 1594 967 1170; Add 1422 1422 1594;
  Sub 1291 1291 1422; Mul 1422 947 1291; Mul 1594 974 1136; Add 1422 1422 1594; Add 1198 1198 1422;
  Mul 1422 914 1591; Mul 1594 967 1410; Add 1422 1422 1594; Sub 1678 1678 1422; Mul 1422 949 1678;
  Mul 1594 975 1265; Add 1422 1422 1594; Add 1198 1198 1422; Mul 1422 916 1591; Mul 1594 967 1377;
  Add 1422 1422 1594; Add 1382 1382 1422; Mul 1422 951 1382; Mul 1594 976 1669; Add 1422 1422 1594;
  Add 1198 1198 1422; Mul 1422 918 1591; Mul 1594 967 1083; Add 1422 1422 1594; Sub 1422 1422 1521;
  Mul 1521 953 1422; Mul 1594 977 1026; Add 1521 1521 1594; Add 1198 1198 1521; Mul 1521 920 1591;
  Mul 1594 967 1408; Add 1521 1521 1594; Sub 1521 1521 1292; Mul 1292 955 1521; Mul 1594 978 1020;
  Add 1292 1292 1594; Add 1198 1198 1292; Mul 1292 944 1198; Mul 1594 973 1659; Add 1292 1292 1594;
  Sub 1035 1035 1292; Div 1292 1035 980; Mul 1035 979 1035; Mul 1594 947 1198; Mul 1483 973 1136;
  Add 1594 1594 1483; Sub 1291 1291 1594; Mul 1594 981 1291; Add 1035 1035 1594; Mul 1594 949 1198;
  Mul 1483 973 1265; Add 1594 1594 1483; Sub 1678 1678 1594; Mul 1594 982 1678; Add 1035 1035 1594;
  Mul 1594 951 1198; Mul 1483 973 1669; Add 1594 1594 1483; Sub 1382 1382 1594; Mul 1594 983 1382;
  Add 1035 1035 1594; Mul 1594 953 1198; Mul 1483 973 1026; Add 1594 1594 1483; Sub 1422 1422 1594;
  Mul 1594 984 1422; Add 1035 1035 1594; Mul 1594 955 1198; Mul 1483 973 1020].
Definition casadi_f0_506 : list instruction := [
  Add 1594 1594 1483; Sub 1521 1521 1594; Mul 1594 985 1521; Add 1035 1035 1594; Div 1035 1035 1630;
  Mul 1594 1629 1035; Sub 1292 1292 1594; Mul 1594 956 1292; Add 1361 1361 1594; Mul 1594 947 1092;
  Mul 1483 945 1136; Add 1594 1594 1483; Sub 1490 1490 1594; Mul 1594 989 1490; Div 1291 1291 980;
  Mul 1483 1262 1035; Sub 1291 1291 1483; Mul 1483 988 1291; Add 1594 1594 1483; Add 1361 1361 1594;
  Mul 1594 949 1092; Mul 1483 945 1265; Add 1594 1594 1483; Sub 1514 1514 1594; Mul 1594 991 1514;
  Div 1678 1678 980; Mul 1483 1306 1035; Sub 1678 1678 1483; Mul 1483 990 1678; Add 1594 1594 1483;
  Add 1361 1361 1594; Mul 1594 951 1092; Mul 1483 945 1669; Add 1594 1594 1483; Sub 1676 1676 1594;
  Mul 1594 993 1676; Div 1382 1382 980; Mul 1483 1626 1035; Sub 1382 1382 1483; Mul 1483 992 1382;
  Add 1594 1594 1483; Add 1361 1361 1594; Mul 1594 953 1092; Mul 1483 945 1026; Add 1594 1594 1483;
  Sub 1612 1612 1594; Mul 1594 995 1612; Div 1422 1422 980; Mul 1483 1530 1035; Sub 1422 1422 1483;
  Mul 1483 994 1422; Add 1594 1594 1483; Add 1361 1361 1594; Mul 1594 955 1092; Mul 1483 945 1020;
  Add 1594 1594 1483; Sub 1560 1560 1594; Mul 1594 997 1560; Div 1521 1521 980; Mul 1483 1472 1035;
  Sub 1521 1521 1483; Mul 1483 996 1521; Add 1594 1594 1483; Add 1361 1361 1594; Mul 1594 986 1361;
  Mul 1483 987 1292; Add 1594 1594 1483; Sub 1508 1508 1594; Div 1594 1508 999; Mul 1508 998 1508;
  Mul 1483 989 1361; Mul 1448 987 1291; Add 1483 1483 1448; Sub 1490 1490 1483; Mul 1483 1000 1490;
  Add 1508 1508 1483; Mul 1483 991 1361; Mul 1448 987 1678; Add 1483 1483 1448; Sub 1514 1514 1483;
  Mul 1483 1001 1514; Add 1508 1508 1483; Mul 1483 993 1361; Mul 1448 987 1382; Add 1483 1483 1448;
  Sub 1676 1676 1483; Mul 1483 1002 1676; Add 1508 1508 1483; Mul 1483 995 1361; Mul 1448 987 1422;
  Add 1483 1483 1448; Sub 1612 1612 1483; Mul 1483 1003 1612; Add 1508 1508 1483; Mul 1483 997 1361;
  Mul 1448 987 1521; Add 1483 1483 1448; Sub 1560 1560 1483; Mul 1483 1004 1560; Add 1508 1508 1483;
  Div 1508 1508 1095; Mul 1483 1596 1508; Sub 1594 1594 1483; Mul 1594 211 1594; Mul 1483 1005 1259;
  Sub 1594 1594 1483; Div 1490 1490 999; Mul 1483 1331 1508; Sub 1490 1490 1483; Mul 1490 779 1490;
  Mul 1483 1007 1355; Sub 1490 1490 1483; Add 1594 1594 1490; Div 1514 1514 999; Mul 1490 1080 1508;
  Sub 1514 1514 1490; Mul 1514 767 1514; Mul 1490 1008 1430; Add 1514 1514 1490; Add 1594 1594 1514;
  Div 1676 1676 999; Mul 1514 1056 1508; Sub 1676 1676 1514; Mul 1676 775 1676; Mul 1514 1009 1631;
  Sub 1676 1676 1514; Add 1594 1594 1676; Div 1612 1612 999; Mul 1676 1068 1508; Sub 1612 1612 1676;
  Mul 1612 815 1612; Mul 1676 1010 1253; Add 1612 1612 1676; Add 1594 1594 1612; Div 1560 1560 999;
  Mul 1612 1178 1508; Sub 1560 1560 1612; Mul 1560 833 1560; Mul 1612 1011 1100; Add 1560 1560 1612;
  Add 1594 1594 1560; Div 1594 1594 999; Mul 1508 1033 1508; Sub 1594 1594 1508; Mul 1508 756 1594;
  Add 1635 1635 1508; Sub 1592 1592 1635; Mul 1561 1012 1561; Mul 1292 211 1292].
Definition casadi_f0_507 : list instruction := [
  Mul 1635 986 1259; Sub 1292 1292 1635; Mul 1291 779 1291; Mul 1635 989 1355; Sub 1291 1291 1635;
  Add 1292 1292 1291; Mul 1678 767 1678; Mul 1291 991 1430; Add 1678 1678 1291; Add 1292 1292 1678;
  Mul 1382 775 1382; Mul 1678 993 1631; Sub 1382 1382 1678; Add 1292 1292 1382; Mul 1422 815 1422;
  Mul 1382 995 1253; Add 1422 1422 1382; Add 1292 1292 1422; Mul 1521 833 1521; Mul 1422 997 1100;
  Add 1521 1521 1422; Add 1292 1292 1521; Mul 1361 1006 1361; Mul 1521 987 1594; Add 1361 1361 1521;
  Sub 1292 1292 1361; Div 1292 1292 980; Mul 1035 1534 1035; Sub 1292 1292 1035; Mul 1035 957 1292;
  Add 1561 1561 1035; Sub 1592 1592 1561; Mul 1322 1013 1322; Mul 1659 211 1659; Mul 1561 944 1259;
  Sub 1659 1659 1561; Mul 1136 779 1136; Mul 1561 947 1355; Sub 1136 1136 1561; Add 1659 1659 1136;
  Mul 1265 767 1265; Mul 1136 949 1430; Add 1265 1265 1136; Add 1659 1659 1265; Mul 1669 775 1669;
  Mul 1265 951 1631; Sub 1669 1669 1265; Add 1659 1659 1669; Mul 1026 815 1026; Mul 1669 953 1253;
  Add 1026 1026 1669; Add 1659 1659 1026; Mul 1020 833 1020; Mul 1026 955 1100; Add 1020 1020 1026;
  Add 1659 1659 1020; Mul 1092 1006 1092; Mul 1020 945 1594; Add 1092 1092 1020; Sub 1659 1659 1092;
  Mul 1198 1012 1198; Mul 1092 973 1292; Add 1198 1198 1092; Sub 1659 1659 1198; Div 1659 1659 938;
  Mul 1028 1397 1028; Sub 1659 1659 1028; Mul 1028 922 1659; Add 1322 1322 1028; Sub 1592 1592 1322;
  Mul 1385 1014 1385; Mul 1170 779 1170; Mul 1322 910 1355; Sub 1170 1170 1322; Mul 1462 211 1462;
  Mul 1322 912 1259; Sub 1462 1462 1322; Sub 1170 1170 1462; Mul 1410 767 1410; Mul 1462 914 1430;
  Add 1410 1410 1462; Add 1170 1170 1410; Mul 1377 775 1377; Mul 1410 916 1631; Sub 1377 1377 1410;
  Sub 1170 1170 1377; Mul 1083 815 1083; Mul 1377 918 1253; Add 1083 1083 1377; Sub 1170 1170 1083;
  Mul 1408 833 1408; Mul 1083 920 1100; Add 1408 1408 1083; Sub 1170 1170 1408; Mul 1661 1006 1661;
  Mul 1408 911 1594; Add 1661 1661 1408; Sub 1170 1170 1661; Mul 1591 1012 1591; Mul 1661 967 1292;
  Add 1591 1591 1661; Sub 1170 1170 1591; Mul 1217 1013 1217; Mul 1591 932 1659; Add 1217 1217 1591;
  Sub 1170 1170 1217; Div 1170 1170 905; Mul 1600 1553 1600; Sub 1170 1170 1600; Mul 1600 895 1170;
  Add 1385 1385 1600; Sub 1592 1592 1385; Mul 1245 1015 1245; Mul 1284 211 1284; Mul 1259 881 1259;
  Sub 1284 1284 1259; Mul 1636 779 1636; Mul 1355 884 1355; Sub 1636 1636 1355; Add 1284 1284 1636;
  Mul 1531 767 1531; Mul 1430 886 1430; Add 1531 1531 1430; Add 1284 1284 1531; Mul 1298 775 1298;
  Mul 1631 888 1631; Sub 1298 1298 1631; Add 1284 1284 1298; Mul 1290 815 1290; Mul 1253 890 1253;
  Add 1290 1290 1253; Add 1284 1284 1290; Mul 1485 833 1485; Mul 1100 892 1100; Add 1485 1485 1100;
  Add 1284 1284 1485; Mul 1443 1006 1443; Mul 1485 882 1594; Add 1443 1443 1485; Sub 1284 1284 1443;
  Mul 1578 1012 1578; Mul 1443 959 1292; Add 1578 1578 1443; Sub 1284 1284 1578; Mul 1371 1013 1371;
  Mul 1578 924 1659; Add 1371 1371 1578; Sub 1284 1284 1371; Mul 1048 1014 1048].
Definition casadi_f0_508 : list instruction := [
  Mul 1371 897 1170; Add 1048 1048 1371; Sub 1284 1284 1048; Div 1284 1284 65; Mul 1498 1623 1498;
  Sub 1284 1284 1498; Mul 1498 875 1284; Add 1245 1245 1498; Sub 1592 1592 1245; Div 1592 1592 92;
  Mul 1174 759 1174; Sub 1592 1592 1174; Out 1 102 1592; Out 1 103 1284; Out 1 104 1170; Out 1 105 1659;
  Out 1 106 1292; Out 1 107 1594; Arg 1594 1 114; Out 1 108 1594; Arg 1292 1 115; Out 1 109 1292;
  Arg 1659 1 116; Out 1 110 1659; Arg 1170 1 117; Out 1 111 1170; Arg 1284 1 118; Out 1 112 1284;
  Arg 1592 1 119; Out 1 113 1592; Arg 1174 1 110; Mul 1245 8 1174; Mul 1498 10 1245; Arg 1048 1 113;
  Mul 1371 16 1048; Mul 1578 21 1371; Mul 1048 15 1048; Mul 1443 18 1048; Mul 1485 14 1371; Add 1443 1443 1485;
  Mul 1485 15 1443; Sub 1578 1578 1485; Mul 1485 18 1371; Mul 1100 14 1048; Sub 1485 1485 1100;
  Mul 1485 16 1485; Mul 1100 17 1048; Sub 1485 1485 1100; Sub 1100 1578 1485; Mul 1290 28 1048;
  Mul 1253 26 1371; Add 1290 1290 1253; Mul 1253 1031 1290; Mul 1298 28 1371; Mul 1631 26 1048;
  Sub 1298 1298 1631; Mul 1631 29 1298; Sub 1531 1253 1631; Mul 1531 20 1531; Add 1100 1100 1531;
  Mul 1631 20 1631; Add 1578 1578 1631; Add 1100 1100 1578; Mul 1253 20 1253; Add 1485 1485 1253;
  Add 1485 1485 1578; Add 1253 1100 1485; Mul 1485 19 1485; Arg 1631 1 112; Mul 1531 35 1631; Mul 1430 30 1531;
  Sub 1485 1485 1430; Mul 1631 19 1631; Mul 1430 41 1631; Mul 1636 42 1371; Mul 1355 40 1048;
  Sub 1636 1636 1355; Mul 1355 43 1371; Sub 1636 1636 1355; Mul 1355 44 1298; Add 1636 1636 1355;
  Mul 1355 35 1636; Add 1430 1430 1355; Sub 1485 1485 1430; Mul 1430 19 1485; Mul 1355 38 1531;
  Sub 1430 1430 1355; Mul 1636 19 1636; Mul 1355 41 1531; Sub 1636 1636 1355; Mul 1355 12 1631;
  Mul 1100 35 1100; Add 1355 1355 1100; Sub 1636 1636 1355; Mul 1355 35 1636; Mul 1100 46 1631;
  Add 1355 1355 1100; Sub 1430 1430 1355; Sub 1253 1253 1430; Sub 1253 1253 1578; Mul 1355 50 1290;
  Mul 1100 1039 1355; Mul 1259 50 1298; Mul 1385 19 1259; Mul 1600 49 1531; Sub 1385 1385 1600;
  Mul 1600 51 1631; Sub 1385 1385 1600; Mul 1600 1041 1385; Sub 1217 1100 1600; Mul 1217 37 1217;
  Add 1253 1253 1217; Mul 1217 49 1631; Mul 1591 35 1259; Add 1217 1217 1591; Mul 1591 51 1531;
  Sub 1217 1217 1591; Mul 1591 64 1217; Add 1600 1591 1600; Mul 1600 37 1600; Add 1600 1578 1600;
  Add 1253 1253 1600; Mul 1661 43 1048; Mul 1408 42 1048; Mul 1083 40 1371; Add 1408 1408 1083;
  Sub 1661 1661 1408; Mul 1408 44 1290; Sub 1661 1661 1408; Mul 1408 67 1661; Mul 1083 19 1408;
  Mul 1377 71 1531; Sub 1083 1083 1377; Mul 1377 75 1631; Mul 1443 16 1443; Mul 1410 21 1048;
  Add 1443 1443 1410; Mul 1290 74 1290; Mul 1298 20 1298; Mul 1298 34 1298; Sub 1290 1290 1298;
  Add 1443 1443 1290; Add 1290 1443 1443; Mul 1298 35 1290; Sub 1377 1377 1298; Add 1083 1083 1377;
  Mul 1377 73 1631; Mul 1298 35 1443; Sub 1377 1377 1298].
Definition casadi_f0_509 : list instruction := [
  Mul 1298 19 1661; Mul 1410 70 1531; Sub 1298 1298 1410; Add 1377 1377 1298; Sub 1083 1083 1377;
  Mul 1377 76 1355; Mul 1298 37 1217; Mul 1410 57 1298; Sub 1377 1377 1410; Sub 1083 1083 1377;
  Mul 1377 67 1083; Mul 1377 66 1377; Arg 1410 1 111; Mul 1462 53 1410; Mul 1322 77 1462; Sub 1377 1377 1322;
  Mul 1410 66 1410; Mul 1322 11 1410; Mul 1028 53 1253; Add 1322 1322 1028; Sub 1377 1377 1322;
  Mul 1322 53 1377; Mul 1028 78 1410; Add 1322 1322 1028; Add 1253 1253 1322; Sub 1253 1253 1600;
  Mul 1028 87 1462; Mul 1198 83 1355; Mul 1092 66 1198; Add 1028 1028 1092; Mul 1092 88 1410; Mul 1217 83 1217;
  Mul 1020 53 1217; Add 1092 1092 1020; Add 1028 1028 1092; Mul 1092 1054 1028; Mul 1020 83 1385;
  Mul 1026 1058 1020; Sub 1669 1092 1026; Mul 1669 80 1669; Add 1253 1253 1669; Add 1600 1600 1322;
  Mul 1322 66 1217; Mul 1669 88 1462; Sub 1322 1322 1669; Mul 1669 87 1410; Mul 1265 53 1198;
  Sub 1669 1669 1265; Add 1322 1322 1669; Mul 1669 93 1322; Add 1026 1669 1026; Mul 1026 80 1026;
  Add 1600 1600 1026; Add 1253 1253 1600; Mul 1026 9 1253; Add 1498 1498 1026; Mul 1377 66 1377;
  Mul 1026 78 1462; Sub 1377 1377 1026; Sub 1377 1377 1083; Mul 1083 72 1028; Mul 1026 80 1322;
  Mul 1265 63 1026; Sub 1083 1083 1265; Sub 1377 1377 1083; Mul 1083 67 1377; Mul 1083 8 1083; Mul 1174 9 1174;
  Mul 1265 97 1174; Sub 1083 1083 1265; Add 1498 1498 1083; Mul 1083 9 1498; Mul 1265 84 1245;
  Add 1083 1083 1265; Sub 1265 1083 1600; Mul 1322 104 1322; Mul 1136 8 1322; Mul 1561 103 1174;
  Sub 1136 1136 1561; Mul 1561 105 1245; Mul 1035 104 1028; Mul 1361 9 1035; Sub 1561 1561 1361;
  Sub 1136 1136 1561; Mul 1561 33 1136; Mul 1361 104 1020; Mul 1521 1066 1361; Add 1422 1561 1521;
  Mul 1422 100 1422; Sub 1265 1265 1422; Mul 1498 8 1498; Mul 1422 84 1174; Sub 1498 1498 1422;
  Sub 1498 1498 1377; Mul 1377 103 1245; Mul 1422 9 1322; Add 1377 1377 1422; Mul 1422 105 1174;
  Mul 1382 8 1035; Add 1422 1422 1382; Sub 1377 1377 1422; Mul 1422 96 1377; Mul 1382 100 1136;
  Mul 1678 117 1382; Sub 1422 1422 1678; Add 1498 1498 1422; Mul 1498 67 1498; Mul 1498 114 1498;
  Arg 1422 1 109; Mul 1678 113 1422; Mul 1291 116 1678; Sub 1498 1498 1291; Mul 1422 114 1422;
  Mul 1291 119 1422; Sub 1253 1253 1083; Sub 1253 1253 1600; Mul 1600 1044 1377; Sub 1521 1600 1521;
  Mul 1521 100 1521; Add 1253 1253 1521; Sub 1253 1253 1265; Mul 1253 113 1253; Add 1291 1291 1253;
  Sub 1498 1498 1291; Mul 1498 113 1498; Mul 1291 118 1422; Add 1498 1498 1291; Sub 1265 1265 1498;
  Mul 1136 120 1136; Mul 1498 114 1136; Mul 1291 60 1678; Sub 1498 1498 1291; Mul 1291 121 1422;
  Mul 1253 120 1377; Mul 1521 113 1253; Add 1291 1291 1521; Add 1498 1498 1291; Mul 1291 112 1498;
  Mul 1521 120 1361; Mul 1083 123 1521; Add 1291 1291 1083; Mul 1291 99 1291; Sub 1265 1265 1291;
  Mul 1498 125 1498; Mul 1498 110 1498; Mul 1291 125 1521; Mul 1291 126 1291; Add 1498 1498 1291;
  Mul 1498 122 1498].
Definition casadi_f0_510 : list instruction := [
  Add 1265 1265 1498; Div 1498 1265 92; Mul 1265 6 1265; Mul 1291 130 1245; Mul 1636 19 1636; Mul 1083 46 1531;
  Sub 1636 1636 1083; Mul 1485 35 1485; Mul 1083 38 1631; Add 1485 1485 1083; Add 1636 1636 1485;
  Mul 1298 52 1298; Mul 1485 76 1385; Add 1298 1298 1485; Add 1636 1636 1298; Mul 1298 66 1636;
  Mul 1485 129 1462; Sub 1298 1298 1485; Mul 1485 132 1410; Mul 1083 70 1631; Mul 1635 35 1661;
  Add 1083 1083 1635; Mul 1635 73 1531; Mul 1508 19 1443; Add 1635 1635 1508; Add 1083 1083 1635;
  Mul 1290 19 1290; Mul 1635 75 1531; Add 1290 1290 1635; Mul 1408 35 1408; Mul 1635 71 1631;
  Add 1408 1408 1635; Add 1290 1290 1408; Sub 1083 1083 1290; Mul 1290 133 1355; Mul 1385 37 1385;
  Mul 1385 57 1385; Sub 1290 1290 1385; Sub 1083 1083 1290; Mul 1290 53 1083; Add 1485 1485 1290;
  Add 1298 1298 1485; Mul 1026 27 1026; Mul 1485 72 1020; Add 1026 1026 1485; Add 1298 1298 1026;
  Mul 1026 9 1298; Add 1291 1291 1026; Add 1026 1083 1083; Mul 1026 66 1026; Mul 1485 136 1462;
  Sub 1026 1026 1485; Mul 1485 129 1410; Mul 1290 53 1636; Add 1485 1485 1290; Sub 1026 1026 1485;
  Mul 1485 66 1083; Mul 1290 132 1462; Sub 1485 1485 1290; Sub 1026 1026 1485; Mul 1028 138 1028;
  Mul 1485 80 1020; Mul 1485 63 1485; Sub 1028 1028 1485; Sub 1026 1026 1028; Add 1028 1026 1026;
  Mul 1028 8 1028; Mul 1485 139 1174; Sub 1028 1028 1485; Add 1291 1291 1028; Mul 1028 8 1026;
  Mul 1485 137 1174; Sub 1028 1028 1485; Sub 1291 1291 1028; Mul 1377 140 1377; Mul 1028 100 1361;
  Mul 1028 117 1028; Sub 1377 1377 1028; Add 1291 1291 1377; Mul 1377 141 1521; Mul 1377 121 1377;
  Mul 1028 142 1253; Add 1377 1377 1028; Sub 1291 1291 1377; Mul 1291 114 1291; Mul 1377 134 1678;
  Sub 1291 1291 1377; Mul 1377 145 1422; Mul 1028 8 1298; Mul 1485 130 1174; Sub 1028 1028 1485;
  Mul 1485 137 1245; Mul 1290 9 1026; Add 1485 1485 1290; Sub 1028 1028 1485; Mul 1382 111 1382;
  Mul 1485 96 1361; Add 1382 1382 1485; Add 1028 1028 1382; Mul 1382 141 1136; Mul 1382 124 1382;
  Mul 1521 146 1521; Add 1382 1382 1521; Sub 1028 1028 1382; Mul 1028 113 1028; Add 1377 1377 1028;
  Sub 1291 1291 1377; Mul 1377 1073 1291; Add 1265 1265 1377; Mul 1377 150 1422; Mul 1028 149 1245;
  Mul 1382 148 1361; Mul 1521 147 1035; Mul 1485 109 1521; Sub 1382 1382 1485; Add 1026 1026 1382;
  Mul 1382 9 1026; Add 1028 1028 1382; Mul 1361 151 1361; Mul 1382 147 1322; Mul 1485 109 1382;
  Add 1361 1361 1485; Add 1298 1298 1361; Mul 1361 8 1298; Mul 1485 152 1174; Sub 1361 1361 1485;
  Sub 1028 1028 1361; Mul 1361 148 1245; Mul 1485 9 1521; Sub 1361 1361 1485; Mul 1485 8 1382;
  Mul 1290 151 1174; Sub 1485 1485 1290; Sub 1361 1361 1485; Mul 1485 108 1361; Add 1028 1028 1485;
  Mul 1028 113 1028; Add 1377 1377 1028; Mul 1028 152 1245; Mul 1298 9 1298; Add 1028 1028 1298;
  Mul 1026 8 1026; Mul 1298 149 1174; Sub 1026 1026 1298; Add 1028 1028 1026; Mul 1026 151 1245;
  Mul 1298 9 1382; Add 1026 1026 1298; Mul 1298 148 1174].
Definition casadi_f0_511 : list instruction := [
  Mul 1485 8 1521; Add 1298 1298 1485; Sub 1026 1026 1298; Mul 1026 108 1026; Add 1028 1028 1026;
  Mul 1028 114 1028; Mul 1026 155 1678; Sub 1028 1028 1026; Add 1377 1377 1028; Mul 1028 1050 1377;
  Add 1265 1265 1028; Mul 1028 159 1245; Mul 1026 156 1217; Mul 1026 82 1026; Mul 1298 157 1020;
  Add 1026 1026 1298; Sub 1636 1636 1026; Mul 1026 66 1636; Mul 1298 158 1462; Sub 1026 1026 1298;
  Mul 1298 161 1410; Mul 1020 156 1020; Mul 1020 87 1020; Mul 1485 160 1198; Sub 1020 1020 1485;
  Sub 1083 1083 1020; Mul 1020 53 1083; Add 1298 1298 1020; Add 1026 1026 1298; Mul 1298 9 1026;
  Add 1028 1028 1298; Mul 1083 66 1083; Mul 1298 161 1462; Sub 1083 1083 1298; Mul 1298 158 1410;
  Mul 1636 53 1636; Add 1298 1298 1636; Sub 1083 1083 1298; Mul 1298 8 1083; Mul 1636 163 1174;
  Sub 1298 1298 1636; Add 1028 1028 1298; Mul 1298 167 1410; Mul 1636 166 1217; Mul 1020 53 1636;
  Add 1298 1298 1020; Mul 1020 164 1462; Mul 1485 156 1198; Mul 1290 66 1485; Add 1020 1020 1290;
  Sub 1298 1298 1020; Mul 1020 8 1298; Mul 1290 165 1174; Sub 1020 1020 1290; Mul 1290 169 1245;
  Mul 1636 66 1636; Mul 1385 167 1462; Sub 1636 1636 1385; Mul 1385 164 1410; Mul 1485 53 1485;
  Sub 1385 1385 1485; Sub 1636 1636 1385; Mul 1385 9 1636; Add 1290 1290 1385; Sub 1020 1020 1290;
  Mul 1020 108 1020; Sub 1028 1028 1020; Mul 1028 114 1028; Mul 1020 162 1678; Sub 1028 1028 1020;
  Mul 1020 170 1422; Mul 1026 8 1026; Mul 1290 159 1174; Sub 1026 1026 1290; Mul 1290 163 1245; Mul 1083 9 1083;
  Add 1290 1290 1083; Sub 1026 1026 1290; Mul 1290 165 1245; Mul 1083 9 1298; Add 1290 1290 1083;
  Mul 1083 8 1636; Mul 1385 169 1174; Sub 1083 1083 1385; Add 1290 1290 1083; Mul 1083 108 1290;
  Add 1026 1026 1083; Mul 1026 113 1026; Add 1020 1020 1026; Sub 1028 1028 1020; Mul 1020 1070 1028;
  Add 1265 1265 1020; Mul 1020 179 1245; Mul 1026 177 1410; Mul 1083 174 1259; Mul 1259 173 1259;
  Mul 1385 49 1259; Add 1083 1083 1385; Add 1083 1083 1578; Mul 1385 174 1631; Mul 1485 35 1259;
  Add 1385 1385 1485; Mul 1485 176 1531; Sub 1385 1385 1485; Mul 1485 62 1385; Mul 1408 176 1631;
  Mul 1635 19 1259; Mul 1508 174 1531; Sub 1635 1635 1508; Sub 1408 1408 1635; Mul 1635 48 1408;
  Sub 1485 1485 1635; Add 1485 1083 1485; Mul 1635 53 1485; Add 1026 1026 1635; Mul 1635 176 1355;
  Sub 1661 1661 1635; Mul 1635 19 1661; Mul 1508 180 1531; Sub 1635 1635 1508; Mul 1508 182 1631;
  Mul 1259 56 1259; Mul 1355 174 1355; Sub 1259 1259 1355; Sub 1259 1259 1443; Mul 1443 35 1259;
  Add 1508 1508 1443; Add 1635 1635 1508; Mul 1508 55 1385; Add 1635 1635 1508; Mul 1508 66 1635;
  Mul 1443 181 1462; Sub 1508 1508 1443; Sub 1026 1026 1508; Mul 1508 86 1385; Sub 1026 1026 1508;
  Mul 1508 9 1026; Add 1020 1020 1508; Mul 1508 181 1410; Mul 1635 53 1635; Add 1508 1508 1635;
  Mul 1485 66 1485; Mul 1635 177 1462; Sub 1485 1485 1635; Add 1508 1508 1485; Mul 1485 91 1385;
  Add 1508 1508 1485; Mul 1485 8 1508; Mul 1635 184 1174].
Definition casadi_f0_512 : list instruction := [
  Sub 1485 1485 1635; Add 1020 1020 1485; Mul 1385 102 1385; Mul 1485 66 1408; Mul 1635 178 1462;
  Sub 1485 1485 1635; Mul 1635 8 1485; Mul 1443 185 1174; Sub 1635 1635 1443; Mul 1443 187 1245;
  Mul 1355 178 1410; Mul 1560 53 1408; Add 1355 1355 1560; Mul 1560 9 1355; Add 1443 1443 1560;
  Add 1635 1635 1443; Mul 1635 108 1635; Sub 1385 1385 1635; Add 1020 1020 1385; Mul 1020 114 1020;
  Mul 1385 183 1678; Sub 1020 1020 1385; Mul 1385 186 1422; Mul 1026 8 1026; Mul 1635 179 1174;
  Sub 1026 1026 1635; Mul 1635 184 1245; Mul 1508 9 1508; Add 1635 1635 1508; Sub 1026 1026 1635;
  Mul 1635 185 1245; Mul 1508 9 1485; Add 1635 1635 1508; Mul 1508 8 1355; Mul 1443 187 1174;
  Sub 1508 1508 1443; Sub 1635 1635 1508; Mul 1508 108 1635; Add 1026 1026 1508; Mul 1026 113 1026;
  Add 1385 1385 1026; Sub 1020 1020 1385; Mul 1385 1059 1020; Add 1265 1265 1385; Mul 1385 199 1245;
  Mul 1026 196 1631; Mul 1508 197 1371; Mul 1443 195 1048; Sub 1508 1508 1443; Mul 1443 190 1048;
  Mul 1560 192 1371; Add 1443 1443 1560; Mul 1560 198 1443; Add 1508 1508 1560; Mul 1560 35 1508;
  Add 1026 1026 1560; Mul 1560 189 1531; Mul 1612 25 1443; Mul 1676 190 1371; Mul 1514 192 1048;
  Sub 1676 1676 1514; Mul 1514 32 1676; Add 1612 1612 1514; Mul 1514 19 1612; Add 1560 1560 1514;
  Sub 1026 1026 1560; Mul 1560 48 1443; Mul 1514 19 1676; Mul 1490 194 1531; Sub 1514 1514 1490;
  Mul 1490 55 1514; Add 1560 1560 1490; Sub 1026 1026 1560; Mul 1560 66 1026; Mul 1490 193 1462;
  Sub 1560 1560 1490; Mul 1490 202 1410; Mul 1483 198 1676; Mul 1448 197 1048; Mul 1435 195 1371;
  Add 1448 1448 1435; Sub 1483 1483 1448; Mul 1448 62 1514; Mul 1435 194 1631; Mul 1676 35 1676;
  Add 1435 1435 1676; Mul 1676 48 1435; Sub 1448 1448 1676; Add 1448 1483 1448; Mul 1676 53 1448;
  Add 1490 1490 1676; Add 1560 1560 1490; Mul 1490 86 1514; Sub 1560 1560 1490; Mul 1490 9 1560;
  Add 1385 1385 1490; Mul 1448 66 1448; Mul 1490 202 1462; Sub 1448 1448 1490; Mul 1490 193 1410;
  Mul 1026 53 1026; Add 1490 1490 1026; Sub 1448 1448 1490; Mul 1490 91 1514; Add 1448 1448 1490;
  Mul 1490 8 1448; Mul 1026 205 1174; Sub 1490 1490 1026; Add 1385 1385 1490; Mul 1514 102 1514;
  Mul 1490 66 1435; Mul 1026 203 1462; Sub 1490 1490 1026; Mul 1026 191 1410; Mul 1676 53 1443;
  Sub 1026 1026 1676; Add 1490 1490 1026; Mul 1026 8 1490; Mul 1676 206 1174; Sub 1026 1026 1676;
  Mul 1676 208 1245; Mul 1625 191 1462; Mul 1423 66 1443; Add 1625 1625 1423; Mul 1423 203 1410;
  Mul 1365 53 1435; Add 1423 1423 1365; Add 1625 1625 1423; Mul 1423 9 1625; Sub 1676 1676 1423;
  Sub 1026 1026 1676; Mul 1026 108 1026; Sub 1514 1514 1026; Add 1385 1385 1514; Mul 1385 114 1385;
  Mul 1514 204 1678; Sub 1385 1385 1514; Mul 1514 207 1422; Mul 1560 8 1560; Mul 1026 199 1174;
  Sub 1560 1560 1026; Mul 1026 205 1245; Mul 1448 9 1448; Add 1026 1026 1448; Sub 1560 1560 1026;
  Mul 1026 206 1245; Mul 1448 9 1490; Add 1026 1026 1448; Mul 1448 208 1174].
Definition casadi_f0_513 : list instruction := [
  Mul 1676 8 1625; Add 1448 1448 1676; Sub 1026 1026 1448; Mul 1448 108 1026; Add 1560 1560 1448;
  Mul 1560 113 1560; Add 1514 1514 1560; Sub 1385 1385 1514; Mul 1514 1043 1385; Add 1265 1265 1514;
  Div 1265 1265 1085; Mul 1514 1072 1265; Sub 1498 1498 1514; Mul 1514 211 1498; Mul 1560 216 1422;
  Arg 1448 1 108; Mul 1676 215 1448; Mul 1423 113 1676; Sub 1560 1560 1423; Mul 1423 218 1560;
  Mul 1365 114 1594; Mul 1228 0 1678; Sub 1365 1365 1228; Mul 1228 217 1365; Add 1423 1423 1228;
  Mul 1448 216 1448; Mul 1228 1 1448; Mul 1237 215 1292; Add 1228 1228 1237; Sub 1423 1423 1228;
  Mul 1228 0 1422; Mul 1237 113 1594; Add 1228 1228 1237; Mul 1237 220 1228; Mul 1393 114 1676;
  Mul 1311 216 1678; Add 1393 1393 1311; Mul 1311 221 1393; Sub 1237 1237 1311; Sub 1423 1423 1237;
  Mul 1237 214 1423; Mul 1311 213 1237; Mul 1311 212 1311; Mul 1395 225 1311; Mul 1373 114 1448;
  Mul 1646 215 1678; Sub 1373 1373 1646; Mul 1646 101 1373; Mul 1524 107 1676; Sub 1646 1646 1524;
  Mul 1524 223 1646; Add 1168 1395 1524; Mul 1016 216 1292; Mul 1097 1 1676; Sub 1016 1016 1097;
  Mul 1097 113 1448; Mul 1182 215 1422; Add 1097 1097 1182; Mul 1182 218 1097; Mul 1565 228 1365;
  Add 1182 1182 1565; Add 1016 1016 1182; Mul 1182 221 1373; Mul 1565 224 1228; Add 1182 1182 1565;
  Sub 1016 1016 1182; Mul 1182 214 1016; Mul 1565 213 1182; Mul 1565 212 1565; Mul 1687 231 1565;
  Mul 1275 101 1393; Mul 1628 107 1448; Add 1275 1275 1628; Mul 1628 230 1275; Sub 1687 1687 1628;
  Sub 1628 1168 1687; Add 1524 1524 1395; Sub 1687 1524 1687; Add 1395 1628 1687; Mul 1313 144 1422;
  Mul 1032 215 1313; Mul 1627 240 1448; Add 1032 1032 1627; Mul 1627 236 1678; Mul 1573 238 1422;
  Add 1627 1627 1573; Mul 1573 220 1627; Mul 1251 237 1393; Add 1573 1573 1251; Sub 1032 1032 1573;
  Mul 1573 115 1676; Add 1032 1032 1573; Mul 1573 212 1275; Mul 1251 242 1573; Mul 1457 101 1422;
  Mul 1486 241 1457; Add 1251 1251 1486; Add 1251 1032 1251; Mul 1486 244 1251; Mul 1407 213 1016;
  Mul 1555 243 1407; Add 1529 1486 1555; Mul 1618 237 1373; Mul 1224 224 1627; Sub 1618 1618 1224;
  Mul 1313 216 1313; Mul 1224 240 1676; Sub 1313 1313 1224; Sub 1618 1618 1313; Mul 1313 115 1448;
  Sub 1618 1618 1313; Mul 1313 212 1646; Mul 1313 242 1313; Mul 1224 247 1457; Sub 1313 1313 1224;
  Sub 1313 1618 1313; Mul 1224 249 1313; Mul 1426 213 1423; Mul 1314 248 1426; Add 1584 1224 1314;
  Sub 1047 1529 1584; Sub 1395 1395 1047; Add 1314 1314 1224; Add 1555 1555 1486; Sub 1486 1314 1555;
  Add 1395 1395 1486; Mul 1486 9 1560; Mul 1224 217 1245; Add 1486 1486 1224; Mul 1224 8 1393;
  Mul 1047 220 1174; Add 1224 1224 1047; Sub 1486 1486 1224; Mul 1224 254 1486; Mul 1047 218 1245;
  Mul 1691 9 1365; Add 1047 1047 1691; Mul 1691 8 1228; Mul 1655 221 1174; Sub 1691 1691 1655;
  Sub 1047 1047 1691; Mul 1691 253 1047; Add 1224 1224 1691; Mul 1560 8 1560; Mul 1691 217 1174;
  Sub 1560 1560 1691; Mul 1691 220 1245; Mul 1655 9 1393; Sub 1691 1691 1655].
Definition casadi_f0_514 : list instruction := [
  Sub 1560 1560 1691; Mul 1691 257 1560; Mul 1655 221 1245; Mul 1074 9 1228; Add 1655 1655 1074;
  Mul 1074 8 1365; Mul 1580 218 1174; Sub 1074 1074 1580; Add 1655 1655 1074; Mul 1074 256 1655;
  Add 1691 1691 1074; Mul 1074 259 1448; Sub 1580 1292 1659; Mul 1677 215 1580; Add 1074 1074 1677;
  Sub 1691 1691 1074; Add 1224 1224 1691; Mul 1691 213 1224; Mul 1074 276 1691; Mul 1677 114 1245;
  Mul 1216 9 1678; Sub 1677 1677 1216; Mul 1216 8 1422; Mul 1535 113 1174; Sub 1216 1216 1535;
  Sub 1677 1677 1216; Mul 1216 260 1677; Mul 1535 9 1422; Mul 1326 113 1245; Add 1535 1535 1326;
  Mul 1326 8 1678; Mul 1684 114 1174; Add 1326 1326 1684; Sub 1535 1535 1326; Mul 1326 263 1535;
  Add 1216 1216 1326; Mul 1326 265 1216; Mul 1684 8 1373; Mul 1271 224 1174; Sub 1684 1684 1271;
  Mul 1271 9 1097; Mul 1481 228 1245; Add 1271 1271 1481; Add 1684 1684 1271; Mul 1271 262 1684;
  Add 1326 1326 1271; Mul 1271 127 1677; Mul 1481 268 1535; Add 1271 1271 1481; Mul 1481 216 1271;
  Mul 1388 267 1676; Sub 1481 1481 1388; Add 1326 1326 1481; Mul 1481 135 1486; Mul 1388 95 1448;
  Add 1481 1481 1388; Sub 1326 1326 1481; Mul 1481 102 1373; Mul 1388 108 1676; Sub 1481 1481 1388;
  Mul 1388 79 1684; Mul 1488 8 1097; Mul 1254 228 1174; Sub 1488 1488 1254; Mul 1254 9 1373; Mul 1464 224 1245;
  Add 1254 1254 1464; Sub 1488 1488 1254; Mul 1254 85 1488; Mul 1464 81 1676; Sub 1254 1254 1464;
  Add 1388 1388 1254; Add 1388 1481 1388; Mul 1254 269 1388; Mul 1254 275 1254; Mul 1464 79 1677;
  Mul 1696 85 1535; Add 1464 1464 1696; Mul 1696 102 1422; Sub 1464 1464 1696; Mul 1315 272 1464;
  Add 1254 1254 1315; Sub 1254 1326 1254; Mul 1315 258 1254; Add 1143 1074 1315; Mul 1667 254 1684;
  Mul 1638 265 1047; Add 1667 1667 1638; Mul 1638 216 1580; Mul 1352 259 1676; Sub 1638 1638 1352;
  Mul 1352 257 1488; Mul 1206 273 1655; Add 1352 1352 1206; Add 1638 1638 1352; Add 1667 1667 1638;
  Mul 1638 213 1667; Mul 1352 284 1638; Mul 1206 253 1216; Mul 1579 262 1486; Add 1206 1206 1579;
  Mul 1271 215 1271; Mul 1579 267 1448; Add 1271 1271 1579; Sub 1206 1206 1271; Mul 1271 95 1676;
  Mul 1579 135 1684; Add 1271 1271 1579; Add 1206 1206 1271; Mul 1271 79 1486; Mul 1579 85 1560;
  Mul 1229 81 1448; Sub 1579 1579 1229; Add 1271 1271 1579; Mul 1579 102 1393; Mul 1229 108 1448;
  Add 1579 1579 1229; Sub 1271 1271 1579; Mul 1229 269 1271; Mul 1494 275 1229; Mul 1210 283 1464;
  Add 1494 1494 1210; Sub 1494 1206 1494; Mul 1210 279 1494; Add 1279 1352 1210; Sub 1323 1143 1279;
  Mul 1358 292 1464; Mul 1690 288 1535; Mul 1152 287 1245; Mul 1571 108 1365; Mul 1665 9 1571;
  Add 1152 1152 1665; Mul 1665 102 1292; Mul 1335 108 1228; Add 1665 1665 1335; Mul 1335 8 1665;
  Mul 1278 289 1174; Sub 1335 1335 1278; Sub 1152 1152 1335; Mul 1335 264 1152; Add 1690 1690 1335;
  Mul 1335 291 1677; Mul 1571 8 1571; Mul 1278 287 1174; Sub 1571 1571 1278; Mul 1278 289 1245; Mul 1665 9 1665;
  Add 1278 1278 1665; Add 1571 1571 1278].
Definition casadi_f0_515 : list instruction := [
  Mul 1278 261 1571; Add 1335 1335 1278; Sub 1690 1690 1335; Mul 1335 281 1667; Mul 1278 278 1579;
  Sub 1335 1335 1278; Mul 1278 255 1481; Mul 1665 270 1224; Add 1278 1278 1665; Sub 1335 1335 1278;
  Add 1690 1690 1335; Mul 1335 213 1690; Mul 1335 269 1335; Mul 1278 275 1335; Add 1665 1358 1278;
  Mul 1148 288 1560; Mul 1620 256 1152; Add 1148 1148 1620; Mul 1620 295 1448; Mul 1647 102 1365;
  Mul 1551 215 1647; Add 1620 1620 1551; Sub 1148 1148 1620; Mul 1620 291 1486; Mul 1551 253 1571;
  Add 1620 1620 1551; Sub 1148 1148 1620; Mul 1620 296 1481; Mul 1551 254 1677; Mul 1378 261 1047;
  Add 1551 1551 1378; Mul 1378 257 1535; Mul 1042 264 1655; Add 1378 1378 1042; Add 1551 1551 1378;
  Mul 1378 270 1551; Add 1620 1620 1378; Mul 1378 274 1667; Mul 1042 278 1696; Sub 1378 1378 1042;
  Sub 1620 1620 1378; Add 1148 1148 1620; Mul 1620 213 1148; Mul 1620 269 1620; Mul 1378 282 1620;
  Mul 1042 297 1271; Add 1071 1378 1042; Mul 1461 216 1647; Mul 1049 295 1676; Sub 1461 1461 1049;
  Mul 1049 288 1488; Mul 1640 273 1152; Add 1049 1049 1640; Add 1461 1461 1049; Mul 1049 291 1684;
  Mul 1640 265 1571; Add 1049 1049 1640; Sub 1461 1461 1049; Mul 1049 274 1224; Mul 1640 255 1696;
  Sub 1049 1049 1640; Mul 1640 281 1551; Mul 1345 296 1579; Sub 1640 1640 1345; Sub 1049 1049 1640;
  Add 1461 1461 1049; Mul 1049 213 1461; Mul 1049 269 1049; Mul 1640 271 1049; Mul 1345 300 1388;
  Add 1608 1640 1345; Add 1278 1278 1358; Add 1358 1608 1278; Add 1071 1071 1358; Sub 1075 1665 1071;
  Add 1042 1042 1378; Add 1345 1345 1640; Add 1665 1345 1665; Add 1042 1042 1665; Sub 1278 1278 1042;
  Add 1075 1075 1278; Add 1210 1210 1352; Add 1315 1315 1074; Sub 1074 1210 1315; Add 1075 1075 1074;
  Sub 1323 1323 1075; Mul 1075 66 1486; Mul 1074 253 1462; Sub 1075 1075 1074; Mul 1074 53 1560;
  Mul 1352 256 1410; Add 1074 1074 1352; Sub 1075 1075 1074; Mul 1074 308 1075; Mul 1352 66 1047;
  Mul 1278 254 1462; Sub 1352 1352 1278; Mul 1278 257 1410; Mul 1640 53 1655; Add 1278 1278 1640;
  Sub 1352 1352 1278; Mul 1278 304 1352; Add 1074 1074 1278; Mul 1278 53 1486; Mul 1640 253 1410;
  Add 1278 1278 1640; Mul 1640 66 1560; Mul 1378 256 1462; Sub 1640 1640 1378; Add 1278 1278 1640;
  Mul 1640 311 1278; Mul 1378 254 1410; Mul 1548 53 1047; Add 1378 1378 1548; Mul 1548 66 1655;
  Mul 1572 257 1462; Sub 1548 1548 1572; Add 1378 1378 1548; Mul 1548 310 1378; Add 1640 1640 1548;
  Mul 1548 313 1448; Add 1572 1170 1580; Mul 1087 215 1572; Add 1548 1548 1087; Sub 1640 1640 1548;
  Add 1074 1074 1640; Mul 1640 213 1074; Mul 1548 330 1640; Mul 1087 66 1677; Mul 1424 261 1462;
  Sub 1087 1087 1424; Mul 1424 53 1535; Mul 1062 264 1410; Add 1424 1424 1062; Sub 1087 1087 1424;
  Mul 1424 314 1087; Mul 1062 53 1677; Mul 1348 261 1410; Add 1062 1062 1348; Mul 1348 66 1535;
  Mul 1496 264 1462; Sub 1348 1348 1496; Add 1062 1062 1348; Mul 1348 317 1062; Add 1424 1424 1348;
  Mul 1348 319 1424; Mul 1496 66 1684; Mul 1449 265 1462; Sub 1496 1496 1449].
Definition casadi_f0_516 : list instruction := [
  Mul 1449 53 1488; Mul 1133 273 1410; Add 1449 1449 1133; Sub 1496 1496 1449; Mul 1449 316 1496;
  Add 1348 1348 1449; Mul 1449 128 1087; Mul 1133 322 1062; Add 1449 1449 1133; Mul 1133 216 1449;
  Mul 1360 321 1676; Sub 1133 1133 1360; Add 1348 1348 1133; Mul 1133 131 1075; Mul 1360 68 1448;
  Add 1133 1133 1360; Sub 1348 1348 1133; Mul 1133 91 1684; Mul 1360 86 1488; Add 1133 1133 1360;
  Add 1133 1481 1133; Mul 1360 61 1496; Mul 1215 53 1684; Mul 1089 265 1410; Add 1215 1215 1089;
  Mul 1089 66 1488; Mul 1493 273 1462; Sub 1089 1089 1493; Add 1215 1215 1089; Mul 1089 54 1215;
  Mul 1493 47 1676; Sub 1089 1089 1493; Add 1360 1360 1089; Add 1360 1133 1360; Mul 1089 323 1360;
  Mul 1089 329 1089; Mul 1493 91 1677; Mul 1535 86 1535; Add 1493 1493 1535; Sub 1493 1493 1696;
  Mul 1535 61 1087; Mul 1274 54 1062; Add 1535 1535 1274; Add 1535 1493 1535; Mul 1274 326 1535;
  Add 1089 1089 1274; Sub 1089 1348 1089; Mul 1274 312 1089; Add 1303 1548 1274; Mul 1241 308 1496;
  Mul 1394 319 1352; Add 1241 1241 1394; Mul 1394 216 1572; Mul 1113 313 1676; Sub 1394 1394 1113;
  Mul 1113 311 1215; Mul 1239 327 1378; Add 1113 1113 1239; Add 1394 1394 1113; Add 1241 1241 1394;
  Mul 1394 213 1241; Mul 1113 338 1394; Mul 1239 304 1424; Mul 1272 316 1075; Add 1239 1239 1272;
  Mul 1449 215 1449; Mul 1272 321 1448; Add 1449 1449 1272; Sub 1239 1239 1449; Mul 1449 68 1676;
  Mul 1272 131 1496; Add 1449 1449 1272; Add 1239 1239 1449; Mul 1449 91 1486; Mul 1560 86 1560;
  Add 1449 1449 1560; Sub 1449 1449 1579; Mul 1560 61 1075; Mul 1272 54 1278; Mul 1559 47 1448;
  Sub 1272 1272 1559; Add 1560 1560 1272; Add 1560 1449 1560; Mul 1272 323 1560; Mul 1559 329 1272;
  Mul 1187 337 1535; Add 1559 1559 1187; Sub 1559 1239 1559; Mul 1187 333 1559; Add 1666 1113 1187;
  Sub 1141 1303 1666; Mul 1454 346 1535; Mul 1562 342 1087; Mul 1425 86 1580; Sub 1425 1425 1571;
  Mul 1571 66 1425; Mul 1427 341 1462; Sub 1571 1571 1427; Mul 1427 343 1410; Mul 1580 91 1580;
  Sub 1152 1152 1580; Mul 1580 53 1152; Add 1427 1427 1580; Sub 1571 1571 1427; Mul 1427 315 1571;
  Add 1562 1562 1427; Mul 1427 345 1062; Mul 1580 341 1410; Mul 1425 53 1425; Add 1580 1580 1425;
  Mul 1152 66 1152; Mul 1425 343 1462; Sub 1152 1152 1425; Add 1580 1580 1152; Mul 1152 318 1580;
  Add 1427 1427 1152; Add 1562 1562 1427; Mul 1427 332 1449; Mul 1152 335 1241; Add 1427 1427 1152;
  Mul 1152 309 1133; Mul 1425 324 1074; Add 1152 1152 1425; Sub 1427 1427 1152; Add 1562 1562 1427;
  Mul 1427 213 1562; Mul 1427 323 1427; Mul 1152 329 1427; Add 1425 1454 1152; Mul 1662 342 1075;
  Mul 1409 304 1571; Add 1662 1662 1409; Mul 1409 345 1278; Mul 1693 310 1580; Add 1409 1409 1693;
  Mul 1693 350 1448; Mul 1047 86 1047; Mul 1655 91 1655; Sub 1047 1047 1655; Sub 1647 1647 1047;
  Mul 1047 215 1647; Add 1693 1693 1047; Sub 1409 1409 1693; Add 1662 1662 1409; Mul 1409 349 1133;
  Mul 1693 308 1087; Mul 1047 315 1352; Add 1693 1693 1047; Mul 1047 311 1062].
Definition casadi_f0_517 : list instruction := [
  Mul 1655 318 1378; Add 1047 1047 1655; Add 1693 1693 1047; Mul 1047 324 1693; Add 1409 1409 1047;
  Mul 1047 332 1493; Mul 1655 328 1241; Add 1047 1047 1655; Sub 1409 1409 1047; Add 1662 1662 1409;
  Mul 1409 213 1662; Mul 1409 323 1409; Mul 1047 336 1409; Mul 1655 351 1560; Add 1370 1047 1655;
  Mul 1506 342 1496; Mul 1599 319 1571; Add 1506 1506 1599; Mul 1599 216 1647; Mul 1108 350 1676;
  Sub 1599 1599 1108; Mul 1108 345 1215; Mul 1539 327 1580; Add 1108 1108 1539; Add 1599 1599 1108;
  Add 1506 1506 1599; Mul 1599 309 1493; Mul 1108 328 1074; Add 1599 1599 1108; Mul 1108 349 1449;
  Mul 1539 335 1693; Add 1108 1108 1539; Sub 1599 1599 1108; Add 1506 1506 1599; Mul 1599 213 1506;
  Mul 1599 323 1599; Mul 1108 325 1599; Mul 1539 354 1360; Add 1103 1108 1539; Add 1152 1152 1454;
  Add 1454 1103 1152; Add 1370 1370 1454; Sub 1492 1425 1370; Add 1655 1655 1047; Add 1539 1539 1108;
  Add 1425 1539 1425; Add 1655 1655 1425; Sub 1152 1152 1655; Add 1492 1492 1152; Add 1187 1187 1113;
  Add 1274 1274 1548; Sub 1548 1187 1274; Add 1492 1492 1548; Sub 1141 1141 1492; Mul 1492 19 1075;
  Mul 1548 304 1531; Sub 1492 1492 1548; Mul 1548 35 1448; Mul 1113 215 1631; Add 1548 1548 1113;
  Add 1492 1492 1548; Mul 1548 362 1492; Mul 1113 19 1352; Mul 1152 308 1531; Sub 1113 1113 1152;
  Mul 1152 313 1631; Mul 1108 35 1572; Add 1152 1152 1108; Sub 1113 1113 1152; Mul 1152 358 1113;
  Add 1548 1548 1152; Mul 1152 35 1075; Mul 1108 304 1631; Add 1152 1152 1108; Mul 1108 19 1448;
  Mul 1047 215 1531; Sub 1108 1108 1047; Sub 1152 1152 1108; Mul 1108 365 1152; Mul 1047 308 1631;
  Mul 1147 35 1352; Add 1047 1047 1147; Mul 1147 19 1572; Mul 1332 313 1531; Sub 1147 1147 1332;
  Add 1047 1047 1147; Mul 1147 364 1047; Add 1108 1108 1147; Mul 1147 367 1278; Sub 1332 1378 1284;
  Mul 1180 310 1332; Add 1147 1147 1180; Add 1108 1108 1147; Add 1548 1548 1108; Mul 1108 213 1548;
  Mul 1147 385 1108; Mul 1180 19 1087; Mul 1536 315 1531; Sub 1180 1180 1536; Mul 1536 368 1180;
  Mul 1402 35 1087; Mul 1211 315 1631; Add 1402 1402 1211; Mul 1211 39 1402; Mul 1052 373 1062;
  Add 1211 1211 1052; Add 1536 1536 1211; Mul 1211 372 1536; Mul 1052 19 1496; Mul 1025 319 1531;
  Sub 1052 1052 1025; Mul 1025 216 1631; Mul 1588 35 1676; Sub 1025 1025 1588; Sub 1052 1052 1025;
  Mul 1025 370 1052; Add 1211 1211 1025; Mul 1025 39 1180; Mul 1588 376 1402; Add 1025 1025 1588;
  Mul 1588 377 1025; Mul 1018 35 1496; Mul 1208 319 1631; Add 1018 1018 1208; Mul 1208 19 1676;
  Mul 1176 216 1531; Add 1208 1208 1176; Sub 1018 1018 1208; Mul 1208 375 1018; Add 1588 1588 1208;
  Add 1211 1211 1588; Mul 1588 69 1152; Add 1211 1211 1588; Mul 1588 62 1496; Mul 1208 55 1215;
  Mul 1176 48 1676; Sub 1208 1208 1176; Add 1588 1588 1208; Add 1588 1133 1588; Mul 1208 380 1052;
  Mul 1176 24 1018; Mul 1401 31 1215; Add 1176 1176 1401; Add 1208 1208 1176; Add 1208 1588 1208;
  Mul 1176 378 1208; Mul 1176 384 1176; Mul 1401 62 1087; Mul 1415 55 1062].
Definition casadi_f0_518 : list instruction := [
  Add 1401 1401 1415; Add 1401 1493 1401; Mul 1415 380 1180; Mul 1566 24 1402; Mul 1368 31 1062;
  Add 1566 1566 1368; Add 1415 1415 1566; Add 1415 1401 1415; Mul 1566 382 1415; Add 1176 1176 1566;
  Sub 1176 1211 1176; Mul 1566 366 1176; Add 1368 1147 1566; Mul 1238 362 1052; Mul 1503 372 1113;
  Add 1238 1238 1503; Mul 1503 365 1018; Mul 1416 377 1047; Add 1503 1503 1416; Mul 1416 367 1215;
  Mul 1509 327 1332; Add 1416 1416 1509; Add 1503 1503 1416; Add 1238 1238 1503; Mul 1503 213 1238;
  Mul 1416 393 1503; Mul 1509 358 1536; Mul 1270 370 1492; Add 1509 1509 1270; Mul 1270 364 1025;
  Mul 1701 375 1152; Add 1270 1270 1701; Add 1509 1509 1270; Mul 1270 69 1018; Sub 1509 1509 1270;
  Mul 1270 62 1075; Mul 1701 55 1278; Mul 1162 48 1448; Sub 1701 1701 1162; Add 1270 1270 1701;
  Add 1270 1449 1270; Mul 1701 380 1492; Mul 1162 24 1152; Mul 1502 31 1278; Add 1162 1162 1502;
  Add 1701 1701 1162; Add 1701 1270 1701; Mul 1162 378 1701; Mul 1502 384 1162; Mul 1525 392 1415;
  Add 1502 1502 1525; Sub 1502 1509 1502; Mul 1525 388 1502; Add 1577 1416 1525; Sub 1312 1368 1577;
  Mul 1586 401 1415; Mul 1692 397 1180; Mul 1644 48 1378; Mul 1527 55 1572; Sub 1644 1644 1527;
  Sub 1571 1571 1644; Mul 1644 19 1571; Mul 1527 396 1531; Sub 1644 1644 1527; Mul 1527 398 1631;
  Mul 1412 55 1352; Mul 1378 62 1378; Sub 1412 1412 1378; Sub 1647 1647 1412; Mul 1412 35 1647;
  Add 1527 1527 1412; Sub 1644 1644 1527; Mul 1527 369 1644; Add 1692 1692 1527; Mul 1527 400 1402;
  Mul 1412 396 1631; Mul 1571 35 1571; Add 1412 1412 1571; Mul 1647 19 1647; Mul 1571 398 1531;
  Sub 1647 1647 1571; Add 1412 1412 1647; Mul 1647 371 1412; Add 1527 1527 1647; Mul 1647 402 1062;
  Mul 1572 62 1572; Mul 1352 48 1352; Sub 1572 1572 1352; Sub 1580 1580 1572; Mul 1572 318 1580;
  Add 1647 1647 1572; Add 1527 1527 1647; Add 1692 1692 1527; Mul 1527 387 1270; Mul 1647 390 1238;
  Add 1527 1527 1647; Mul 1647 363 1588; Mul 1572 379 1548; Add 1647 1647 1572; Sub 1527 1527 1647;
  Add 1692 1692 1527; Mul 1527 213 1692; Mul 1527 378 1527; Mul 1647 384 1527; Add 1572 1586 1647;
  Mul 1352 397 1492; Mul 1571 358 1644; Add 1352 1352 1571; Mul 1571 400 1152; Mul 1378 364 1412;
  Add 1571 1571 1378; Mul 1378 402 1278; Mul 1670 310 1580; Add 1378 1378 1670; Add 1571 1571 1378;
  Add 1352 1352 1571; Mul 1571 405 1588; Mul 1378 362 1180; Mul 1670 369 1113; Add 1378 1378 1670;
  Mul 1670 365 1402; Mul 1207 371 1047; Add 1670 1670 1207; Mul 1207 367 1062; Mul 1455 318 1332;
  Add 1207 1207 1455; Add 1670 1670 1207; Add 1378 1378 1670; Mul 1670 379 1378; Add 1571 1571 1670;
  Mul 1670 387 1401; Mul 1207 383 1238; Add 1670 1670 1207; Sub 1571 1571 1670; Add 1352 1352 1571;
  Mul 1571 213 1352; Mul 1571 378 1571; Mul 1670 391 1571; Mul 1207 406 1701; Add 1455 1670 1207;
  Mul 1169 397 1052; Mul 1250 372 1644; Add 1169 1169 1250; Mul 1250 400 1018; Mul 1288 377 1412;
  Add 1250 1250 1288; Mul 1288 402 1215; Mul 1329 327 1580; Add 1288 1288 1329].
Definition casadi_f0_519 : list instruction := [
  Add 1250 1250 1288; Add 1169 1169 1250; Mul 1250 363 1401; Mul 1288 383 1548; Add 1250 1250 1288;
  Mul 1288 405 1270; Mul 1329 390 1378; Add 1288 1288 1329; Sub 1250 1250 1288; Add 1169 1169 1250;
  Mul 1250 213 1169; Mul 1250 378 1250; Mul 1288 381 1250; Mul 1329 409 1208; Add 1302 1288 1329;
  Add 1647 1647 1586; Add 1586 1302 1647; Add 1455 1455 1586; Sub 1060 1572 1455; Add 1207 1207 1670;
  Add 1329 1329 1288; Add 1572 1329 1572; Add 1207 1207 1572; Sub 1647 1647 1207; Add 1060 1060 1647;
  Add 1525 1525 1416; Add 1566 1566 1147; Sub 1147 1525 1566; Add 1060 1060 1147; Sub 1312 1312 1060;
  Mul 1060 413 1492; Sub 1147 1113 1592; Mul 1416 358 1147; Add 1060 1060 1416; Mul 1416 16 1152;
  Mul 1647 364 1048; Sub 1416 1416 1647; Mul 1647 15 1278; Mul 1288 310 1371; Add 1647 1647 1288;
  Sub 1416 1416 1647; Mul 1647 419 1416; Mul 1288 16 1047; Mul 1670 365 1048; Sub 1288 1288 1670;
  Mul 1670 367 1371; Mul 1411 15 1332; Add 1670 1670 1411; Sub 1288 1288 1670; Mul 1670 418 1288;
  Add 1647 1647 1670; Mul 1670 15 1152; Mul 1411 364 1371; Add 1670 1670 1411; Mul 1411 16 1278;
  Mul 1433 310 1048; Sub 1411 1411 1433; Add 1670 1670 1411; Mul 1411 422 1670; Mul 1433 365 1371;
  Mul 1082 15 1047; Add 1433 1433 1082; Mul 1082 16 1332; Mul 1337 367 1048; Sub 1082 1082 1337;
  Add 1433 1433 1082; Mul 1082 421 1433; Add 1411 1411 1082; Add 1647 1647 1411; Add 1060 1060 1647;
  Mul 1647 213 1060; Mul 1411 439 1647; Mul 1082 423 1180; Mul 1337 16 1402; Mul 1507 371 1048;
  Sub 1337 1337 1507; Mul 1507 15 1062; Mul 1149 318 1371; Add 1507 1507 1149; Sub 1337 1337 1507;
  Mul 1507 40 1337; Mul 1149 15 1402; Mul 1607 371 1371; Add 1149 1149 1607; Mul 1607 16 1062;
  Mul 1347 318 1048; Sub 1607 1607 1347; Add 1149 1149 1607; Mul 1607 42 1149; Add 1507 1507 1607;
  Add 1082 1082 1507; Mul 1507 372 1082; Mul 1607 424 1052; Add 1507 1507 1607; Mul 1607 40 1180;
  Mul 1347 14 1337; Mul 1356 18 1149; Add 1347 1347 1356; Add 1607 1607 1347; Mul 1347 429 1607;
  Mul 1356 16 1018; Mul 1243 377 1048; Sub 1356 1356 1243; Mul 1243 15 1215; Mul 1526 327 1371;
  Add 1243 1243 1526; Sub 1356 1356 1243; Mul 1243 428 1356; Add 1347 1347 1243; Add 1507 1507 1347;
  Mul 1347 43 1416; Mul 1243 431 1492; Sub 1347 1347 1243; Add 1507 1507 1347; Mul 1347 198 1052;
  Mul 1243 25 1018; Mul 1526 32 1215; Add 1243 1243 1526; Add 1347 1347 1243; Add 1347 1588 1347;
  Mul 1243 433 1052; Mul 1526 26 1356; Mul 1094 15 1018; Mul 1131 377 1371; Add 1094 1094 1131;
  Mul 1131 16 1215; Mul 1181 327 1048; Sub 1131 1131 1181; Add 1094 1094 1131; Mul 1131 28 1094;
  Add 1526 1526 1131; Add 1243 1243 1526; Add 1243 1347 1243; Mul 1526 430 1243; Mul 1526 438 1526;
  Mul 1131 198 1180; Mul 1181 25 1402; Mul 1188 32 1062; Add 1181 1181 1188; Add 1131 1131 1181;
  Add 1131 1401 1131; Mul 1181 433 1180; Mul 1188 26 1337; Mul 1343 28 1149; Add 1188 1188 1343;
  Add 1181 1181 1188; Add 1181 1131 1181; Mul 1188 435 1181; Add 1526 1526 1188].
Definition casadi_f0_520 : list instruction := [
  Sub 1526 1507 1526; Mul 1188 420 1526; Add 1343 1411 1188; Mul 1247 413 1052; Mul 1022 372 1147;
  Add 1247 1247 1022; Mul 1022 419 1356; Mul 1190 429 1288; Add 1022 1022 1190; Mul 1190 422 1094;
  Mul 1034 436 1433; Add 1190 1190 1034; Add 1022 1022 1190; Add 1247 1247 1022; Mul 1022 213 1247;
  Mul 1190 447 1022; Mul 1034 358 1082; Mul 1434 424 1492; Add 1034 1034 1434; Mul 1434 418 1607;
  Mul 1609 428 1416; Add 1434 1434 1609; Add 1034 1034 1434; Mul 1434 43 1356; Mul 1609 431 1052;
  Sub 1434 1434 1609; Sub 1034 1034 1434; Mul 1434 198 1492; Mul 1609 25 1152; Mul 1172 32 1278;
  Add 1609 1609 1172; Add 1434 1434 1609; Add 1434 1270 1434; Mul 1609 433 1492; Mul 1172 26 1416;
  Mul 1338 28 1670; Add 1172 1172 1338; Add 1609 1609 1172; Add 1609 1434 1609; Mul 1172 430 1609;
  Mul 1338 438 1172; Mul 1489 446 1181; Add 1338 1338 1489; Sub 1338 1034 1338; Mul 1489 442 1338;
  Add 1621 1190 1489; Sub 1648 1343 1621; Mul 1689 455 1181; Mul 1110 450 1180; Mul 1460 25 1332;
  Mul 1590 32 1047; Sub 1460 1460 1590; Sub 1644 1644 1460; Mul 1460 369 1644; Add 1110 1110 1460;
  Mul 1460 453 1337; Mul 1590 32 1113; Mul 1332 198 1332; Sub 1590 1590 1332; Sub 1412 1412 1590;
  Mul 1590 16 1412; Mul 1332 452 1048; Sub 1590 1590 1332; Mul 1332 454 1371; Mul 1047 198 1047;
  Mul 1113 25 1113; Sub 1047 1047 1113; Sub 1580 1580 1047; Mul 1047 15 1580; Add 1332 1332 1047;
  Sub 1590 1590 1332; Mul 1332 425 1590; Add 1460 1460 1332; Mul 1332 456 1149; Mul 1047 452 1371;
  Mul 1412 15 1412; Add 1047 1047 1412; Mul 1580 16 1580; Mul 1412 454 1048; Sub 1580 1580 1412;
  Add 1047 1047 1580; Mul 1580 427 1047; Add 1332 1332 1580; Add 1460 1460 1332; Add 1110 1110 1460;
  Mul 1460 441 1434; Mul 1332 444 1247; Add 1460 1460 1332; Mul 1332 417 1347; Mul 1580 432 1060;
  Add 1332 1332 1580; Sub 1460 1460 1332; Add 1110 1110 1460; Mul 1460 213 1110; Mul 1460 430 1460;
  Mul 1332 438 1460; Add 1580 1689 1332; Mul 1412 450 1492; Mul 1113 358 1644; Add 1412 1412 1113;
  Mul 1113 453 1416; Mul 1125 418 1590; Add 1113 1113 1125; Mul 1670 456 1670; Mul 1125 421 1047;
  Add 1670 1670 1125; Add 1113 1113 1670; Add 1412 1412 1113; Mul 1113 459 1347; Mul 1670 413 1180;
  Mul 1147 369 1147; Add 1670 1670 1147; Mul 1147 419 1337; Mul 1288 425 1288; Add 1147 1147 1288;
  Mul 1149 422 1149; Mul 1433 427 1433; Add 1149 1149 1433; Add 1147 1147 1149; Add 1670 1670 1147;
  Mul 1147 432 1670; Add 1113 1113 1147; Mul 1147 441 1131; Mul 1149 437 1247; Add 1147 1147 1149;
  Sub 1113 1113 1147; Add 1412 1412 1113; Mul 1113 213 1412; Mul 1113 430 1113; Mul 1147 445 1113;
  Mul 1149 460 1609; Add 1433 1147 1149; Mul 1288 450 1052; Mul 1644 372 1644; Add 1288 1288 1644;
  Mul 1644 453 1356; Mul 1590 429 1590; Add 1644 1644 1590; Mul 1590 456 1094; Mul 1047 436 1047;
  Add 1590 1590 1047; Add 1644 1644 1590; Add 1288 1288 1644; Mul 1644 417 1131; Mul 1590 437 1060;
  Add 1644 1644 1590; Mul 1590 459 1434; Mul 1047 444 1670; Add 1590 1590 1047].
Definition casadi_f0_521 : list instruction := [
  Sub 1644 1644 1590; Add 1288 1288 1644; Mul 1644 213 1288; Mul 1644 430 1644; Mul 1590 434 1644;
  Mul 1047 463 1243; Add 1125 1590 1047; Add 1332 1332 1689; Add 1689 1125 1332; Add 1433 1433 1689;
  Sub 1546 1580 1433; Add 1149 1149 1147; Add 1047 1047 1590; Add 1580 1047 1580; Add 1149 1149 1580;
  Sub 1332 1332 1149; Add 1546 1546 1332; Add 1489 1489 1190; Add 1188 1188 1411; Sub 1411 1489 1188;
  Add 1546 1546 1411; Sub 1648 1648 1546; Add 1312 1312 1648; Add 1141 1141 1312; Add 1323 1323 1141;
  Add 1395 1395 1323; Mul 1395 0 1395; Mul 1323 235 1594; Add 1395 1395 1323; Mul 1216 261 1216;
  Mul 1323 262 1677; Add 1216 1216 1323; Mul 1424 315 1424; Mul 1323 316 1087; Add 1424 1424 1323;
  Mul 1536 369 1536; Mul 1323 370 1180; Add 1536 1536 1323; Mul 1025 371 1025; Mul 1323 375 1402;
  Add 1025 1025 1323; Add 1536 1536 1025; Mul 1082 369 1082; Mul 1025 424 1180; Add 1082 1082 1025;
  Mul 1607 425 1607; Mul 1025 428 1337; Add 1607 1607 1025; Add 1082 1082 1607; Add 1607 1536 1082;
  Sub 1025 1701 1609; Mul 1323 480 1025; Sub 1141 1208 1243; Mul 1546 1197 1141; Add 1411 1323 1546;
  Mul 1411 20 1411; Add 1607 1607 1411; Add 1411 1424 1607; Mul 1190 485 1701; Mul 1332 50 1609;
  Add 1190 1190 1332; Sub 1332 1560 1190; Mul 1590 487 1332; Mul 1147 485 1208; Mul 1459 50 1243;
  Add 1147 1147 1459; Sub 1459 1360 1147; Mul 1339 1286 1459; Add 1077 1590 1339; Mul 1077 37 1077;
  Add 1411 1411 1077; Add 1077 1216 1411; Mul 1232 493 1560; Mul 1305 83 1190; Add 1232 1232 1305;
  Sub 1305 1271 1232; Mul 1118 495 1305; Mul 1617 493 1360; Mul 1439 83 1147; Add 1617 1617 1439;
  Sub 1439 1388 1617; Mul 1497 1294 1439; Add 1545 1118 1497; Mul 1545 80 1545; Add 1077 1077 1545;
  Mul 1545 237 1422; Mul 1627 113 1627; Sub 1545 1545 1627; Sub 1627 1077 1545; Mul 1349 501 1388;
  Mul 1324 104 1617; Add 1349 1349 1324; Sub 1324 1646 1349; Mul 1672 1299 1324; Mul 1383 501 1271;
  Mul 1230 104 1232; Add 1383 1383 1230; Add 1230 1275 1383; Mul 1475 503 1230; Sub 1658 1672 1475;
  Mul 1658 100 1658; Add 1627 1627 1658; Mul 1627 508 1627; Mul 1658 216 1423; Mul 1700 219 1676;
  Sub 1658 1658 1700; Mul 1700 215 1016; Mul 1280 227 1448; Add 1700 1700 1280; Add 1658 1658 1700;
  Mul 1700 500 1658; Add 1627 1627 1700; Add 1700 1509 1034; Mul 1025 20 1025; Mul 1280 512 1025;
  Sub 1374 1415 1181; Mul 1554 511 1374; Add 1280 1280 1554; Sub 1700 1700 1280; Add 1280 1239 1700;
  Mul 1332 37 1332; Mul 1554 516 1332; Mul 1252 485 1415; Mul 1076 50 1181; Add 1252 1252 1076;
  Sub 1076 1535 1252; Mul 1257 514 1076; Add 1554 1554 1257; Sub 1280 1280 1554; Add 1554 1206 1280;
  Mul 1305 80 1305; Mul 1257 520 1305; Mul 1127 493 1535; Mul 1308 83 1252; Add 1127 1127 1308;
  Sub 1308 1464 1127; Mul 1142 518 1308; Add 1257 1257 1142; Sub 1554 1554 1257; Add 1257 1032 1554;
  Mul 1230 100 1230; Mul 1142 524 1230; Mul 1444 501 1464; Mul 1537 104 1127; Add 1444 1444 1537;
  Add 1537 1457 1444; Mul 1327 522 1537; Add 1142 1142 1327; Add 1257 1257 1142].
Definition casadi_f0_522 : list instruction := [
  Mul 1142 526 1257; Mul 1327 221 1422; Mul 1228 113 1228; Add 1327 1327 1228; Mul 1365 114 1365;
  Mul 1228 218 1678; Sub 1365 1365 1228; Add 1327 1327 1365; Mul 1365 216 1327; Mul 1228 525 1676;
  Sub 1365 1365 1228; Mul 1228 521 1365; Add 1142 1142 1228; Add 1228 1211 1507; Mul 1611 20 1141;
  Mul 1611 512 1611; Mul 1522 529 1374; Add 1611 1611 1522; Sub 1228 1228 1611; Add 1611 1348 1228;
  Mul 1522 37 1459; Mul 1522 516 1522; Mul 1482 531 1076; Add 1522 1522 1482; Sub 1611 1611 1522;
  Add 1522 1326 1611; Mul 1482 80 1439; Mul 1482 520 1482; Mul 1372 533 1308; Add 1482 1482 1372;
  Sub 1522 1522 1482; Add 1482 1618 1522; Mul 1372 100 1324; Mul 1372 524 1372; Mul 1447 535 1537;
  Sub 1372 1372 1447; Sub 1482 1482 1372; Mul 1372 536 1482; Mul 1447 215 1327; Mul 1146 525 1448;
  Add 1447 1447 1146; Mul 1146 534 1447; Add 1372 1372 1146; Add 1142 1142 1372; Sub 1627 1627 1142;
  Mul 1142 120 1383; Mul 1372 527 1275; Sub 1142 1142 1372; Mul 1372 539 1142; Mul 1146 120 1444;
  Mul 1369 527 1457; Sub 1146 1146 1369; Mul 1369 526 1146; Mul 1653 538 1365; Add 1369 1369 1653;
  Mul 1653 508 1142; Mul 1549 537 1658; Add 1653 1653 1549; Add 1369 1369 1653; Mul 1653 540 1327;
  Mul 1549 214 1676; Mul 1674 525 1549; Sub 1653 1653 1674; Sub 1369 1369 1653; Mul 1369 141 1369;
  Mul 1674 537 1369; Add 1372 1372 1674; Mul 1674 527 1646; Mul 1576 120 1349; Add 1674 1674 1576;
  Mul 1576 546 1674; Mul 1392 544 1327; Mul 1685 214 1448; Mul 1632 525 1685; Add 1392 1392 1632;
  Mul 1632 508 1674; Mul 1226 543 1658; Add 1632 1632 1226; Mul 1226 536 1146; Mul 1024 538 1447;
  Add 1226 1226 1024; Add 1632 1632 1226; Sub 1632 1392 1632; Mul 1632 141 1632; Mul 1226 543 1632;
  Add 1576 1576 1226; Sub 1372 1372 1576; Add 1627 1627 1372; Mul 1372 553 1426; Mul 1576 238 1373;
  Mul 1097 236 1097; Mul 1226 144 1676; Sub 1097 1097 1226; Add 1576 1576 1097; Mul 1097 224 1576;
  Mul 1226 542 1373; Add 1097 1097 1226; Mul 1373 144 1373; Mul 1226 549 1676; Sub 1373 1373 1226;
  Mul 1226 216 1373; Mul 1024 548 1676; Sub 1226 1226 1024; Add 1097 1097 1226; Mul 1226 1334 1275;
  Mul 1024 1336 1457; Add 1512 1226 1024; Mul 1512 212 1512; Sub 1512 1097 1512; Mul 1030 249 1512;
  Add 1663 1372 1030; Mul 1109 556 1407; Mul 1576 220 1576; Mul 1393 542 1393; Sub 1576 1576 1393;
  Mul 1373 215 1373; Mul 1393 548 1448; Add 1373 1373 1393; Sub 1576 1576 1373; Mul 1373 241 1646;
  Mul 1573 225 1573; Sub 1373 1373 1573; Sub 1373 1576 1373; Mul 1573 244 1373; Add 1393 1109 1573;
  Sub 1663 1663 1393; Mul 1393 242 1311; Mul 1436 223 1457; Sub 1393 1393 1436; Mul 1436 1342 1646;
  Sub 1226 1436 1226; Mul 1226 212 1226; Sub 1226 1226 1545; Mul 1387 249 1226; Mul 1673 551 1426;
  Add 1120 1387 1673; Mul 1418 560 1251; Mul 1116 213 1327; Mul 1513 243 1116; Add 1128 1418 1513;
  Sub 1120 1120 1128; Add 1120 1393 1120; Sub 1663 1663 1120; Sub 1120 1545 1097; Mul 1128 219 1120;
  Mul 1283 557 1423; Add 1128 1128 1283; Mul 1283 227 1576; Mul 1445 555 1016].
Definition casadi_f0_523 : list instruction := [
  Add 1283 1283 1445; Add 1128 1128 1283; Mul 1283 525 1032; Mul 1445 239 1327; Add 1283 1283 1445;
  Add 1128 1128 1283; Mul 1283 340 1646; Mul 1445 231 1016; Mul 1487 227 1275; Sub 1445 1445 1487;
  Mul 1487 219 1646; Mul 1589 225 1423; Add 1487 1487 1589; Sub 1445 1445 1487; Mul 1445 212 1445;
  Mul 1487 225 1445; Add 1283 1283 1487; Mul 1487 242 1423; Mul 1589 219 1457; Sub 1487 1487 1589;
  Mul 1589 231 1327; Mul 1301 525 1275; Sub 1589 1589 1301; Sub 1487 1487 1589; Sub 1487 1237 1487;
  Mul 1487 212 1487; Mul 1589 242 1487; Mul 1301 559 1457; Sub 1589 1589 1301; Add 1283 1283 1589;
  Sub 1128 1128 1283; Mul 1128 213 1128; Sub 1663 1663 1128; Mul 1283 567 1691; Mul 1589 260 1684;
  Mul 1301 263 1488; Mul 1295 127 1676; Sub 1301 1301 1295; Add 1589 1589 1301; Mul 1301 265 1589;
  Mul 1295 547 1684; Add 1301 1301 1295; Mul 1684 127 1684; Mul 1488 268 1488; Mul 1295 563 1676;
  Sub 1488 1488 1295; Add 1684 1684 1488; Mul 1488 216 1684; Mul 1295 562 1676; Sub 1488 1488 1295;
  Add 1301 1301 1488; Mul 1488 1138 1271; Mul 1295 1357 1464; Add 1581 1488 1295; Mul 1581 269 1581;
  Add 1581 1301 1581; Mul 1518 258 1581; Add 1471 1283 1518; Mul 1193 570 1638; Mul 1589 253 1589;
  Mul 1486 547 1486; Add 1589 1589 1486; Mul 1684 215 1684; Mul 1486 562 1448; Add 1684 1684 1486;
  Sub 1589 1589 1684; Mul 1677 135 1677; Sub 1589 1589 1677; Mul 1229 271 1229; Mul 1677 283 1388;
  Add 1229 1229 1677; Sub 1229 1589 1229; Mul 1677 279 1229; Add 1684 1193 1677; Sub 1471 1471 1684;
  Mul 1684 300 1464; Mul 1486 275 1049; Add 1354 1684 1486; Mul 1333 271 1335; Mul 1240 292 1388;
  Add 1236 1333 1240; Add 1354 1354 1236; Mul 1236 1366 1388; Add 1488 1488 1236; Mul 1488 269 1488;
  Add 1488 1216 1488; Mul 1479 258 1488; Mul 1353 565 1691; Add 1441 1479 1353; Mul 1144 574 1494;
  Mul 1542 213 1551; Mul 1495 284 1542; Add 1104 1144 1495; Sub 1441 1441 1104; Add 1354 1354 1441;
  Sub 1471 1471 1354; Mul 1354 571 1224; Add 1441 1301 1216; Mul 1104 255 1441; Sub 1354 1354 1104;
  Mul 1104 278 1589; Mul 1117 569 1667; Add 1104 1104 1117; Add 1354 1354 1104; Mul 1104 296 1206;
  Mul 1117 280 1551; Add 1104 1104 1117; Add 1354 1354 1104; Mul 1104 471 1388; Mul 1117 278 1271;
  Mul 1055 282 1667; Add 1117 1117 1055; Mul 1055 255 1388; Mul 1164 271 1224; Add 1055 1055 1164;
  Sub 1117 1117 1055; Sub 1117 1690 1117; Mul 1117 269 1117; Mul 1055 271 1117; Add 1104 1104 1055;
  Mul 1055 573 1464; Mul 1164 255 1464; Mul 1458 275 1224; Add 1164 1164 1458; Mul 1458 296 1271;
  Mul 1173 282 1551; Add 1458 1458 1173; Sub 1164 1164 1458; Sub 1164 1461 1164; Mul 1164 269 1164;
  Mul 1458 275 1164; Add 1055 1055 1458; Sub 1104 1104 1055; Add 1354 1354 1104; Mul 1354 213 1354;
  Sub 1471 1471 1354; Mul 1104 581 1640; Mul 1055 314 1496; Mul 1458 317 1215; Mul 1173 128 1676;
  Sub 1458 1458 1173; Add 1055 1055 1458; Mul 1458 319 1055; Mul 1173 561 1496; Add 1458 1458 1173;
  Mul 1496 128 1496; Mul 1173 322 1215; Mul 1420 577 1676; Sub 1173 1173 1420].
Definition casadi_f0_524 : list instruction := [
  Add 1496 1496 1173; Mul 1173 216 1496; Mul 1420 576 1676; Sub 1173 1173 1420; Add 1458 1458 1173;
  Mul 1173 1379 1560; Mul 1420 1381 1535; Add 1396 1173 1420; Mul 1396 323 1396; Add 1396 1458 1396;
  Mul 1235 312 1396; Add 1285 1104 1235; Mul 1325 584 1394; Mul 1055 304 1055; Mul 1075 561 1075;
  Add 1055 1055 1075; Mul 1496 215 1496; Mul 1075 576 1448; Add 1496 1496 1075; Sub 1055 1055 1496;
  Mul 1087 131 1087; Sub 1055 1055 1087; Mul 1272 325 1272; Mul 1087 337 1360; Add 1272 1272 1087;
  Sub 1272 1055 1272; Mul 1087 333 1272; Add 1496 1325 1087; Sub 1285 1285 1496; Mul 1496 354 1535;
  Mul 1075 329 1599; Add 1163 1496 1075; Mul 1558 325 1427; Mul 1242 346 1360; Add 1671 1558 1242;
  Add 1163 1163 1671; Mul 1671 1390 1360; Add 1173 1173 1671; Mul 1173 323 1173; Add 1173 1424 1173;
  Mul 1601 312 1173; Mul 1093 579 1640; Add 1603 1601 1093; Mul 1199 588 1559; Mul 1585 213 1693;
  Mul 1266 338 1585; Add 1282 1199 1266; Sub 1603 1603 1282; Add 1163 1163 1603; Sub 1285 1285 1163;
  Mul 1163 585 1074; Add 1603 1458 1424; Mul 1282 309 1603; Sub 1163 1163 1282; Mul 1282 332 1055;
  Mul 1517 583 1241; Add 1282 1282 1517; Add 1163 1163 1282; Mul 1282 349 1239; Mul 1517 334 1693;
  Add 1282 1282 1517; Add 1163 1163 1282; Mul 1282 473 1360; Mul 1517 332 1560; Mul 1650 336 1241;
  Add 1517 1517 1650; Mul 1650 309 1360; Mul 1194 325 1074; Add 1650 1650 1194; Sub 1517 1517 1650;
  Sub 1517 1562 1517; Mul 1517 323 1517; Mul 1650 325 1517; Add 1282 1282 1650; Mul 1650 587 1535;
  Mul 1194 309 1535; Mul 1105 329 1074; Add 1194 1194 1105; Mul 1105 349 1560; Mul 1470 336 1693;
  Add 1105 1105 1470; Sub 1194 1194 1105; Sub 1194 1506 1194; Mul 1194 323 1194; Mul 1105 329 1194;
  Add 1650 1650 1105; Sub 1282 1282 1650; Add 1163 1163 1282; Mul 1163 213 1163; Sub 1285 1285 1163;
  Mul 1282 594 1108; Mul 1650 368 1052; Mul 1105 39 1018; Mul 1470 373 1215; Add 1105 1105 1470;
  Add 1650 1650 1105; Mul 1105 372 1650; Mul 1470 575 1052; Add 1105 1105 1470; Mul 1470 39 1052;
  Mul 1639 376 1018; Add 1470 1470 1639; Mul 1639 377 1470; Mul 1018 590 1018; Add 1639 1639 1018;
  Add 1105 1105 1639; Mul 1639 1404 1701; Mul 1018 1405 1415; Add 1154 1639 1018; Mul 1154 378 1154;
  Add 1154 1105 1154; Mul 1564 366 1154; Add 1310 1282 1564; Mul 1102 597 1503; Mul 1650 358 1650;
  Mul 1476 575 1492; Add 1650 1650 1476; Mul 1470 364 1470; Mul 1152 590 1152; Add 1470 1470 1152;
  Add 1650 1650 1470; Mul 1402 69 1402; Add 1650 1650 1402; Mul 1162 381 1162; Mul 1402 392 1208;
  Add 1162 1162 1402; Sub 1162 1650 1162; Mul 1402 388 1162; Add 1470 1102 1402; Sub 1310 1310 1470;
  Mul 1470 409 1415; Mul 1152 384 1250; Add 1476 1470 1152; Mul 1318 381 1527; Mul 1675 401 1208;
  Add 1643 1318 1675; Add 1476 1476 1643; Mul 1643 1414 1208; Add 1639 1639 1643; Mul 1639 378 1639;
  Add 1639 1536 1639; Mul 1431 366 1639; Mul 1244 592 1108; Add 1111 1431 1244; Mul 1225 601 1502;
  Mul 1681 213 1378; Mul 1362 393 1681; Add 1221 1225 1362; Sub 1111 1111 1221].
Definition casadi_f0_525 : list instruction := [
  Add 1476 1476 1111; Sub 1310 1310 1476; Mul 1476 598 1548; Add 1111 1105 1536; Mul 1221 363 1111;
  Sub 1476 1476 1221; Mul 1221 387 1650; Mul 1177 596 1238; Add 1221 1221 1177; Add 1476 1476 1221;
  Mul 1221 405 1509; Mul 1177 389 1378; Add 1221 1221 1177; Add 1476 1476 1221; Mul 1221 475 1208;
  Mul 1177 387 1701; Mul 1473 391 1238; Add 1177 1177 1473; Mul 1473 363 1208; Mul 1688 381 1548;
  Add 1473 1473 1688; Sub 1177 1177 1473; Sub 1177 1692 1177; Mul 1177 378 1177; Mul 1473 381 1177;
  Add 1221 1221 1473; Mul 1473 600 1415; Mul 1688 363 1415; Mul 1320 384 1548; Add 1688 1688 1320;
  Mul 1320 405 1701; Mul 1261 391 1378; Add 1320 1320 1261; Sub 1688 1688 1320; Sub 1688 1169 1688;
  Mul 1688 378 1688; Mul 1320 384 1688; Add 1473 1473 1320; Sub 1221 1221 1473; Add 1476 1476 1221;
  Mul 1476 213 1476; Sub 1310 1310 1476; Mul 1221 607 1647; Mul 1473 423 1052; Mul 1320 40 1356;
  Mul 1261 42 1094; Add 1320 1320 1261; Add 1473 1473 1320; Mul 1320 372 1473; Mul 1261 589 1052;
  Add 1320 1320 1261; Mul 1261 40 1052; Mul 1124 14 1356; Mul 1094 18 1094; Add 1124 1124 1094;
  Add 1261 1261 1124; Mul 1124 429 1261; Mul 1356 603 1356; Add 1124 1124 1356; Add 1320 1320 1124;
  Mul 1124 1428 1609; Mul 1356 1264 1181; Add 1094 1124 1356; Mul 1094 430 1094; Add 1094 1320 1094;
  Mul 1616 420 1094; Add 1151 1221 1616; Mul 1540 610 1022; Mul 1473 358 1473; Mul 1649 589 1492;
  Add 1473 1473 1649; Mul 1261 418 1261; Mul 1416 603 1416; Add 1261 1261 1416; Add 1473 1473 1261;
  Mul 1337 43 1337; Mul 1261 431 1180; Sub 1337 1337 1261; Add 1473 1473 1337; Mul 1172 434 1172;
  Mul 1337 446 1243; Add 1172 1172 1337; Sub 1172 1473 1172; Mul 1337 442 1172; Add 1261 1540 1337;
  Sub 1151 1151 1261; Mul 1261 463 1181; Mul 1416 438 1644; Add 1649 1261 1416; Mul 1227 434 1460;
  Mul 1597 455 1243; Add 1528 1227 1597; Add 1649 1649 1528; Mul 1528 1437 1243; Add 1124 1124 1528;
  Mul 1124 430 1124; Add 1124 1082 1124; Mul 1375 420 1124; Mul 1351 605 1647; Add 1203 1375 1351;
  Mul 1123 614 1338; Mul 1480 213 1670; Mul 1660 447 1480; Add 1543 1123 1660; Sub 1203 1203 1543;
  Add 1649 1649 1203; Sub 1151 1151 1649; Mul 1649 13 1060; Add 1203 1320 1082; Mul 1543 417 1203;
  Sub 1649 1649 1543; Mul 1543 441 1473; Mul 1467 609 1247; Add 1543 1543 1467; Add 1649 1649 1543;
  Mul 1543 459 1034; Mul 1467 443 1670; Add 1543 1543 1467; Add 1649 1649 1543; Mul 1543 477 1243;
  Mul 1467 441 1609; Mul 1456 445 1247; Add 1467 1467 1456; Mul 1456 417 1243; Mul 1419 434 1060;
  Add 1456 1456 1419; Sub 1467 1467 1456; Sub 1467 1110 1467; Mul 1467 430 1467; Mul 1456 434 1467;
  Add 1543 1543 1456; Mul 1456 611 1181; Mul 1419 417 1181; Mul 1501 438 1060; Add 1419 1419 1501;
  Mul 1501 459 1609; Mul 1413 445 1670; Add 1501 1501 1413; Sub 1419 1419 1501; Sub 1419 1288 1419;
  Mul 1419 430 1419; Mul 1501 438 1419; Add 1456 1456 1501; Sub 1543 1543 1456; Add 1649 1649 1543;
  Mul 1649 213 1649; Sub 1151 1151 1649; Add 1310 1310 1151; Add 1285 1285 1310].
Definition casadi_f0_526 : list instruction := [
  Add 1471 1471 1285; Add 1663 1663 1471; Mul 1663 216 1663; Mul 1543 554 1676; Sub 1663 1663 1543;
  Mul 1543 242 1565; Mul 1456 230 1457; Sub 1543 1543 1456; Mul 1456 560 1313; Mul 1501 248 1116;
  Add 1413 1456 1501; Mul 1226 244 1226; Mul 1036 551 1407; Add 1500 1226 1036; Sub 1413 1413 1500;
  Sub 1413 1543 1413; Mul 1500 556 1426; Mul 1213 249 1373; Add 1699 1500 1213; Mul 1192 558 1407;
  Sub 1436 1436 1024; Mul 1436 212 1436; Add 1436 1120 1436; Mul 1024 244 1436; Add 1114 1192 1024;
  Sub 1699 1699 1114; Add 1413 1413 1699; Mul 1699 219 1576; Mul 1114 555 1423; Add 1699 1699 1114;
  Mul 1114 227 1097; Mul 1668 550 1016; Add 1114 1114 1668; Add 1699 1699 1114; Mul 1114 525 1618;
  Mul 1668 246 1327; Add 1114 1114 1668; Add 1699 1699 1114; Mul 1114 231 1445; Mul 1668 340 1275;
  Sub 1114 1114 1668; Mul 1668 525 1646; Mul 1019 225 1327; Add 1668 1668 1019; Mul 1019 242 1016;
  Mul 1099 227 1457; Sub 1019 1019 1099; Sub 1668 1668 1019; Add 1668 1182 1668; Mul 1668 212 1668;
  Mul 1019 242 1668; Mul 1099 616 1457; Sub 1019 1019 1099; Sub 1114 1114 1019; Add 1699 1699 1114;
  Mul 1699 213 1699; Add 1413 1413 1699; Mul 1114 570 1691; Mul 1019 258 1229; Add 1099 1114 1019;
  Mul 1491 572 1638; Add 1236 1236 1295; Mul 1236 269 1236; Sub 1236 1236 1441; Mul 1295 279 1236;
  Add 1276 1491 1295; Sub 1099 1099 1276; Mul 1276 297 1464; Mul 1115 275 1620; Add 1484 1276 1115;
  Mul 1634 282 1335; Mul 1604 292 1271; Add 1145 1634 1604; Add 1484 1484 1145; Mul 1145 574 1254;
  Mul 1317 276 1542; Add 1613 1145 1317; Mul 1488 279 1488; Mul 1587 565 1638; Add 1346 1488 1587;
  Sub 1613 1613 1346; Add 1484 1484 1613; Sub 1099 1099 1484; Mul 1484 255 1589; Mul 1613 569 1224;
  Add 1484 1484 1613; Mul 1613 278 1301; Mul 1346 564 1667; Add 1613 1613 1346; Add 1484 1484 1613;
  Mul 1613 296 1326; Mul 1346 266 1551; Add 1613 1613 1346; Add 1484 1484 1613; Mul 1613 617 1464;
  Mul 1346 296 1388; Mul 1450 271 1551; Add 1346 1346 1450; Mul 1450 278 1464; Mul 1652 275 1667;
  Add 1450 1450 1652; Sub 1346 1346 1450; Sub 1346 1148 1346; Mul 1346 269 1346; Mul 1450 275 1346;
  Add 1613 1613 1450; Mul 1450 471 1271; Mul 1652 282 1117; Add 1450 1450 1652; Sub 1613 1613 1450;
  Add 1484 1484 1613; Mul 1484 213 1484; Add 1099 1099 1484; Mul 1613 584 1640; Mul 1450 312 1272;
  Add 1652 1613 1450; Mul 1263 586 1394; Add 1671 1671 1420; Mul 1671 323 1671; Sub 1671 1671 1603;
  Mul 1420 333 1671; Add 1161 1263 1420; Sub 1652 1652 1161; Mul 1161 351 1535; Mul 1106 329 1409;
  Add 1598 1161 1106; Mul 1519 336 1427; Mul 1189 346 1560; Add 1021 1519 1189; Add 1598 1598 1021;
  Mul 1021 588 1089; Mul 1403 330 1585; Add 1451 1021 1403; Mul 1173 333 1173; Mul 1200 579 1394;
  Add 1130 1173 1200; Sub 1451 1451 1130; Add 1598 1598 1451; Sub 1652 1652 1598; Mul 1598 309 1055;
  Mul 1451 583 1074; Add 1598 1598 1451; Mul 1451 332 1458; Mul 1130 578 1241; Add 1451 1451 1130;
  Add 1598 1598 1451; Mul 1451 349 1348; Mul 1130 320 1693; Add 1451 1451 1130].
Definition casadi_f0_527 : list instruction := [
  Add 1598 1598 1451; Mul 1451 619 1535; Mul 1130 349 1360; Mul 1686 325 1693; Add 1130 1130 1686;
  Mul 1686 332 1535; Mul 1363 329 1241; Add 1686 1686 1363; Sub 1130 1130 1686; Sub 1130 1662 1130;
  Mul 1130 323 1130; Mul 1686 329 1130; Add 1451 1451 1686; Mul 1686 473 1560; Mul 1363 336 1517;
  Add 1686 1686 1363; Sub 1451 1451 1686; Add 1598 1598 1451; Mul 1598 213 1598; Add 1652 1652 1598;
  Mul 1451 597 1108; Mul 1686 366 1162; Add 1363 1451 1686; Mul 1268 599 1503; Add 1643 1643 1018;
  Mul 1643 378 1643; Sub 1643 1643 1111; Mul 1018 388 1643; Add 1641 1268 1018; Sub 1363 1363 1641;
  Mul 1641 406 1415; Mul 1474 384 1571; Add 1319 1641 1474; Mul 1166 391 1527; Mul 1122 401 1701;
  Add 1091 1166 1122; Add 1319 1319 1091; Mul 1091 601 1176; Mul 1606 385 1681; Add 1694 1091 1606;
  Mul 1639 388 1639; Mul 1167 592 1503; Add 1204 1639 1167; Sub 1694 1694 1204; Add 1319 1319 1694;
  Sub 1363 1363 1319; Mul 1319 363 1650; Mul 1694 596 1548; Add 1319 1319 1694; Mul 1694 387 1105;
  Mul 1204 591 1238; Add 1694 1694 1204; Add 1319 1319 1694; Mul 1694 405 1211; Mul 1204 374 1378;
  Add 1694 1694 1204; Add 1319 1319 1694; Mul 1694 621 1415; Mul 1204 405 1208; Mul 1081 381 1378;
  Add 1204 1204 1081; Mul 1081 387 1415; Mul 1602 384 1238; Add 1081 1081 1602; Sub 1204 1204 1081;
  Sub 1204 1352 1204; Mul 1204 378 1204; Mul 1081 384 1204; Add 1694 1694 1081; Mul 1081 475 1701;
  Mul 1602 391 1177; Add 1081 1081 1602; Sub 1694 1694 1081; Add 1319 1319 1694; Mul 1319 213 1319;
  Add 1363 1363 1319; Mul 1694 610 1647; Mul 1081 420 1172; Add 1602 1694 1081; Mul 1134 612 1022;
  Add 1528 1528 1356; Mul 1528 430 1528; Sub 1528 1528 1203; Mul 1356 442 1528; Add 1195 1134 1356;
  Sub 1602 1602 1195; Mul 1195 460 1181; Mul 1624 438 1113; Add 1452 1195 1624; Mul 1682 445 1460;
  Mul 1468 455 1609; Add 1135 1682 1468; Add 1452 1452 1135; Mul 1135 614 1526; Mul 1233 439 1480;
  Add 1364 1135 1233; Mul 1124 442 1124; Mul 1567 605 1022; Add 1504 1124 1567; Sub 1364 1364 1504;
  Add 1452 1452 1364; Sub 1602 1602 1452; Mul 1452 417 1473; Mul 1364 609 1060; Add 1452 1452 1364;
  Mul 1364 441 1320; Mul 1504 604 1247; Add 1364 1364 1504; Add 1452 1452 1364; Mul 1364 459 1507;
  Mul 1504 426 1670; Add 1364 1364 1504; Add 1452 1452 1364; Mul 1364 623 1181; Mul 1504 459 1243;
  Mul 1038 434 1670; Add 1504 1504 1038; Mul 1038 441 1181; Mul 1478 438 1247; Add 1038 1038 1478;
  Sub 1504 1504 1038; Sub 1504 1412 1504; Mul 1504 430 1504; Mul 1038 438 1504; Add 1364 1364 1038;
  Mul 1038 477 1609; Mul 1478 445 1467; Add 1038 1038 1478; Sub 1364 1364 1038; Add 1452 1452 1364;
  Mul 1452 213 1452; Add 1602 1602 1452; Add 1363 1363 1602; Add 1652 1652 1363; Add 1099 1099 1652;
  Add 1413 1413 1099; Mul 1413 215 1413; Mul 1364 613 1448; Add 1413 1413 1364; Sub 1663 1663 1413;
  Mul 1413 212 1426; Mul 1364 242 1413; Mul 1038 624 1457; Sub 1364 1364 1038; Mul 1038 212 1116;
  Mul 1478 231 1038; Mul 1552 626 1275; Sub 1478 1478 1552; Add 1478 1311 1478].
Definition casadi_f0_528 : list instruction := [
  Sub 1364 1364 1478; Mul 1478 213 1487; Add 1552 1364 1478; Mul 1267 269 1691; Mul 1156 275 1267;
  Mul 1017 629 1464; Add 1463 1156 1017; Mul 1432 631 1271; Mul 1084 269 1542; Mul 1231 282 1084;
  Add 1376 1432 1231; Add 1376 1049 1376; Sub 1463 1463 1376; Mul 1376 213 1164; Add 1201 1463 1376;
  Mul 1622 323 1640; Mul 1196 329 1622; Mul 1645 634 1535; Add 1088 1196 1645; Mul 1096 636 1560;
  Mul 1563 323 1585; Mul 1406 336 1563; Add 1505 1096 1406; Add 1505 1599 1505; Sub 1088 1088 1505;
  Mul 1505 213 1194; Add 1541 1088 1505; Mul 1255 378 1108; Mul 1330 384 1255; Mul 1544 639 1415;
  Add 1175 1330 1544; Mul 1090 641 1701; Mul 1359 378 1681; Mul 1287 391 1359; Add 1132 1090 1287;
  Add 1132 1250 1132; Sub 1175 1175 1132; Mul 1132 213 1688; Add 1391 1175 1132; Mul 1341 430 1647;
  Mul 1219 438 1341; Mul 1086 644 1181; Add 1570 1219 1086; Mul 1575 646 1609; Mul 1656 430 1480;
  Mul 1137 445 1656; Add 1697 1575 1137; Add 1697 1644 1697; Sub 1570 1570 1697; Mul 1697 213 1419;
  Add 1664 1570 1697; Add 1391 1391 1664; Add 1541 1541 1391; Add 1201 1201 1541; Add 1552 1552 1201;
  Mul 1552 540 1552; Mul 1477 628 1549; Sub 1552 1552 1477; Mul 1477 212 1407; Mul 1421 242 1477;
  Mul 1399 650 1457; Sub 1421 1421 1399; Mul 1399 626 1646; Mul 1469 225 1038; Add 1399 1399 1469;
  Add 1399 1565 1399; Sub 1421 1421 1399; Mul 1399 213 1668; Add 1469 1421 1399; Mul 1079 631 1388;
  Mul 1191 271 1084; Add 1538 1079 1191; Sub 1538 1620 1538; Mul 1248 269 1638; Mul 1533 275 1248;
  Mul 1258 655 1464; Add 1642 1533 1258; Add 1538 1538 1642; Mul 1642 213 1346; Sub 1386 1538 1642;
  Mul 1556 636 1360; Mul 1119 325 1563; Add 1465 1556 1119; Sub 1465 1409 1465; Mul 1633 323 1394;
  Mul 1453 329 1633; Mul 1140 659 1535; Add 1698 1453 1140; Add 1465 1465 1698; Mul 1698 213 1130;
  Sub 1218 1465 1698; Mul 1389 641 1208; Mul 1466 381 1359; Add 1680 1389 1466; Sub 1680 1571 1680;
  Mul 1037 378 1503; Mul 1515 384 1037; Mul 1384 663 1415; Add 1520 1515 1384; Add 1680 1680 1520;
  Mul 1520 213 1204; Sub 1297 1680 1520; Mul 1183 646 1243; Mul 1605 434 1656; Add 1398 1183 1605;
  Sub 1398 1113 1398; Mul 1380 430 1022; Mul 1438 438 1380; Mul 1417 667 1181; Add 1654 1438 1417;
  Add 1398 1398 1654; Mul 1654 213 1504; Sub 1547 1398 1654; Add 1297 1297 1547; Add 1218 1218 1297;
  Add 1386 1386 1218; Add 1469 1469 1386; Mul 1469 544 1469; Mul 1321 653 1685; Add 1469 1469 1321;
  Add 1552 1552 1469; Sub 1663 1663 1552; Add 1627 1627 1663; Mul 1627 1 1627; Mul 1663 509 1292;
  Add 1627 1627 1663; Add 1395 1395 1627; Mul 1627 602 1554; Mul 1663 216 1551; Mul 1552 296 1676;
  Sub 1663 1663 1552; Mul 1552 517 1663; Add 1627 1627 1552; Mul 1552 670 1522; Mul 1469 215 1551;
  Mul 1321 296 1448; Add 1469 1469 1321; Mul 1321 532 1469; Add 1552 1552 1321; Add 1627 1627 1552;
  Mul 1077 671 1077; Mul 1552 216 1224; Mul 1321 255 1676; Sub 1552 1552 1321; Mul 1321 215 1667;
  Mul 1107 278 1448; Add 1321 1321 1107; Add 1552 1552 1321; Mul 1321 492 1552].
Definition casadi_f0_529 : list instruction := [
  Add 1077 1077 1321; Sub 1627 1627 1077; Mul 1077 675 1383; Mul 1321 215 1690; Mul 1107 290 1448;
  Add 1321 1321 1107; Mul 1107 674 1551; Mul 1440 216 1696; Mul 1112 274 1676; Add 1440 1440 1112;
  Mul 1112 296 1440; Sub 1107 1107 1112; Mul 1112 676 1224; Mul 1481 215 1481; Mul 1185 270 1448;
  Add 1481 1481 1185; Mul 1579 216 1579; Mul 1185 281 1676; Add 1579 1579 1185; Sub 1481 1481 1579;
  Mul 1579 255 1481; Add 1112 1112 1579; Add 1107 1107 1112; Add 1321 1321 1107; Mul 1107 602 1444;
  Mul 1112 523 1663; Add 1107 1107 1112; Mul 1112 671 1383; Mul 1579 502 1552; Add 1112 1112 1579;
  Add 1107 1107 1112; Sub 1107 1321 1107; Mul 1107 672 1107; Mul 1112 502 1107; Add 1077 1077 1112;
  Mul 1112 679 1349; Mul 1690 216 1690; Mul 1579 290 1676; Sub 1690 1690 1579; Mul 1579 676 1667;
  Mul 1185 278 1481; Add 1579 1579 1185; Mul 1185 680 1551; Mul 1179 274 1448; Mul 1696 215 1696;
  Sub 1179 1179 1696; Mul 1696 296 1179; Add 1185 1185 1696; Add 1579 1579 1185; Sub 1690 1690 1579;
  Mul 1579 671 1349; Mul 1185 505 1552; Add 1579 1579 1185; Mul 1185 670 1444; Mul 1696 523 1469;
  Add 1185 1185 1696; Add 1579 1579 1185; Add 1579 1690 1579; Mul 1579 672 1579; Mul 1185 505 1579;
  Add 1112 1112 1185; Sub 1077 1077 1112; Add 1627 1627 1077; Mul 1201 674 1201; Mul 1077 633 1440;
  Sub 1201 1201 1077; Mul 1386 680 1386; Mul 1077 657 1179; Add 1386 1386 1077; Mul 1084 275 1084;
  Mul 1464 631 1464; Add 1077 1084 1464; Mul 1112 629 1271; Mul 1185 282 1267; Add 1696 1112 1185;
  Mul 1300 655 1388; Mul 1277 271 1248; Add 1679 1300 1277; Add 1464 1464 1084; Add 1084 1679 1464;
  Add 1696 1696 1084; Sub 1657 1077 1696; Add 1185 1185 1112; Add 1277 1277 1300; Add 1077 1277 1077;
  Add 1185 1185 1077; Sub 1464 1464 1185; Sub 1657 1657 1464; Mul 1563 329 1563; Mul 1535 636 1535;
  Add 1464 1563 1535; Mul 1300 634 1560; Mul 1112 336 1622; Add 1523 1300 1112; Mul 1051 659 1360;
  Mul 1583 325 1633; Add 1223 1051 1583; Add 1535 1535 1563; Add 1563 1223 1535; Add 1523 1523 1563;
  Sub 1129 1464 1523; Add 1112 1112 1300; Add 1583 1583 1051; Add 1464 1583 1464; Add 1112 1112 1464;
  Sub 1535 1535 1112; Sub 1129 1129 1535; Mul 1359 384 1359; Mul 1415 641 1415; Add 1535 1359 1415;
  Mul 1051 639 1701; Mul 1300 391 1255; Add 1121 1051 1300; Mul 1574 663 1208; Mul 1510 381 1037;
  Add 1499 1574 1510; Add 1415 1415 1359; Add 1359 1499 1415; Add 1121 1121 1359; Sub 1651 1535 1121;
  Add 1300 1300 1051; Add 1510 1510 1574; Add 1535 1510 1535; Add 1300 1300 1535; Sub 1415 1415 1300;
  Sub 1651 1651 1415; Mul 1656 438 1656; Mul 1415 646 1181; Add 1574 1656 1415; Mul 1051 644 1609;
  Mul 1281 445 1341; Add 1296 1051 1281; Mul 1550 667 1243; Mul 1289 434 1380; Add 1511 1550 1289;
  Add 1415 1415 1656; Add 1656 1511 1415; Add 1296 1296 1656; Sub 1582 1574 1296; Add 1281 1281 1051;
  Add 1289 1289 1550; Add 1574 1289 1574; Add 1281 1281 1574; Sub 1415 1415 1281; Sub 1582 1582 1415;
  Add 1651 1651 1582; Add 1129 1129 1651; Add 1657 1657 1129; Mul 1657 676 1657].
Definition casadi_f0_530 : list instruction := [
  Mul 1415 687 1481; Add 1550 1657 1415; Sub 1386 1386 1550; Add 1201 1201 1386; Mul 1099 215 1099;
  Mul 1386 552 1448; Add 1099 1099 1386; Mul 1471 216 1471; Mul 1386 568 1676; Sub 1471 1471 1386;
  Sub 1099 1099 1471; Add 1201 1201 1099; Add 1627 1627 1201; Mul 1627 2 1627; Mul 1201 649 1659;
  Add 1627 1627 1201; Add 1395 1395 1627; Mul 1411 677 1411; Mul 1627 216 1074; Mul 1201 309 1676;
  Sub 1627 1627 1201; Mul 1201 215 1241; Mul 1099 332 1448; Add 1201 1201 1099; Add 1627 1627 1201;
  Mul 1201 484 1627; Add 1411 1411 1201; Mul 1201 706 1280; Mul 1099 216 1693; Mul 1471 349 1676;
  Sub 1099 1099 1471; Mul 1471 513 1099; Add 1201 1201 1471; Mul 1471 712 1611; Mul 1386 215 1693;
  Mul 1550 349 1448; Add 1386 1386 1550; Mul 1550 530 1386; Add 1471 1471 1550; Add 1201 1201 1471;
  Sub 1411 1411 1201; Mul 1201 711 1232; Mul 1471 706 1127; Mul 1550 519 1099; Add 1471 1471 1550;
  Mul 1550 677 1232; Mul 1051 494 1627; Add 1550 1550 1051; Add 1471 1471 1550; Mul 1550 215 1562;
  Mul 1051 344 1448; Add 1550 1550 1051; Mul 1051 714 1693; Mul 1557 216 1493; Mul 1568 328 1676;
  Sub 1557 1557 1568; Mul 1568 349 1557; Add 1051 1051 1568; Mul 1568 716 1074; Mul 1449 216 1449;
  Mul 1400 335 1676; Sub 1449 1449 1400; Mul 1133 215 1133; Mul 1400 324 1448; Add 1133 1133 1400;
  Add 1449 1449 1133; Mul 1133 309 1449; Add 1568 1568 1133; Add 1051 1051 1568; Add 1550 1550 1051;
  Sub 1471 1471 1550; Mul 1471 156 1471; Mul 1051 494 1471; Add 1201 1201 1051; Mul 1051 719 1617;
  Mul 1568 716 1241; Mul 1133 332 1449; Add 1568 1568 1133; Mul 1133 718 1693; Mul 1493 215 1493;
  Mul 1400 328 1448; Add 1493 1493 1400; Mul 1400 349 1493; Add 1133 1133 1400; Add 1568 1568 1133;
  Mul 1562 216 1562; Mul 1133 344 1676; Sub 1562 1562 1133; Sub 1568 1568 1562; Mul 1562 677 1617;
  Mul 1133 497 1627; Add 1562 1562 1133; Mul 1133 712 1127; Mul 1400 519 1386; Add 1133 1133 1400;
  Add 1562 1562 1133; Sub 1562 1568 1562; Mul 1562 156 1562; Mul 1133 497 1562; Add 1051 1051 1133;
  Sub 1201 1201 1051; Add 1411 1411 1201; Mul 1129 716 1129; Mul 1201 694 1449; Add 1051 1129 1201;
  Mul 1218 718 1218; Mul 1133 661 1493; Add 1218 1218 1133; Sub 1051 1051 1218; Mul 1541 714 1541;
  Mul 1218 638 1557; Add 1541 1541 1218; Sub 1051 1051 1541; Mul 1285 216 1285; Mul 1541 582 1676;
  Sub 1285 1285 1541; Mul 1652 215 1652; Mul 1541 618 1448; Add 1652 1652 1541; Sub 1285 1285 1652;
  Add 1051 1051 1285; Add 1411 1411 1051; Mul 1411 3 1411; Mul 1051 681 1170; Add 1411 1411 1051;
  Add 1395 1395 1411; Mul 1411 715 1700; Mul 1051 327 1378; Mul 1285 405 1215; Add 1051 1051 1285;
  Mul 1285 318 1238; Mul 1652 387 1062; Add 1285 1285 1652; Sub 1051 1051 1285; Mul 1285 510 1051;
  Add 1411 1411 1285; Mul 1285 721 1228; Mul 1652 318 1548; Mul 1541 363 1062; Add 1652 1652 1541;
  Mul 1541 310 1378; Mul 1218 405 1278; Add 1541 1541 1218; Sub 1652 1652 1541; Mul 1541 528 1652;
  Add 1285 1285 1541; Add 1411 1411 1285; Mul 1285 722 1607; Mul 1541 310 1238].
Definition casadi_f0_531 : list instruction := [
  Mul 1218 387 1278; Add 1541 1541 1218; Mul 1218 327 1548; Mul 1133 363 1215; Add 1218 1218 1133;
  Sub 1541 1541 1218; Mul 1218 479 1541; Add 1285 1285 1218; Add 1411 1411 1285; Mul 1285 726 1190;
  Mul 1218 318 1352; Mul 1133 404 1062; Add 1218 1218 1133; Mul 1133 310 1692; Mul 1400 399 1278;
  Add 1133 1133 1400; Sub 1218 1218 1133; Mul 1133 725 1378; Mul 1400 327 1401; Mul 1209 383 1215;
  Add 1400 1400 1209; Mul 1209 318 1588; Mul 1316 379 1062; Add 1209 1209 1316; Sub 1400 1400 1209;
  Mul 1209 405 1400; Add 1133 1133 1209; Mul 1209 727 1548; Mul 1588 310 1588; Mul 1316 379 1278;
  Add 1588 1588 1316; Mul 1316 327 1270; Mul 1350 390 1215; Add 1316 1316 1350; Sub 1588 1588 1316;
  Mul 1316 363 1588; Add 1209 1209 1316; Sub 1133 1133 1209; Add 1218 1218 1133; Mul 1133 715 1252;
  Mul 1209 515 1051; Add 1133 1133 1209; Mul 1209 722 1190; Mul 1316 486 1541; Add 1209 1209 1316;
  Sub 1133 1133 1209; Sub 1133 1218 1133; Mul 1133 723 1133; Mul 1209 486 1133; Add 1285 1285 1209;
  Mul 1209 730 1147; Mul 1692 327 1692; Mul 1316 399 1215; Add 1692 1692 1316; Mul 1316 318 1169;
  Mul 1350 408 1062; Add 1316 1316 1350; Sub 1692 1692 1316; Mul 1316 727 1238; Mul 1350 387 1588;
  Add 1316 1316 1350; Mul 1350 731 1378; Mul 1270 318 1270; Mul 1442 390 1062; Add 1270 1270 1442;
  Mul 1401 310 1401; Mul 1442 383 1278; Add 1401 1401 1442; Sub 1270 1270 1401; Mul 1401 405 1270;
  Add 1350 1350 1401; Sub 1316 1316 1350; Add 1692 1692 1316; Mul 1316 722 1147; Mul 1350 489 1541;
  Add 1316 1316 1350; Mul 1350 721 1252; Mul 1401 515 1652; Add 1350 1350 1401; Sub 1316 1316 1350;
  Sub 1316 1692 1316; Mul 1316 723 1316; Mul 1350 489 1316; Add 1209 1209 1350; Sub 1285 1285 1209;
  Add 1411 1411 1285; Mul 1285 725 1391; Mul 1209 643 1400; Add 1285 1285 1209; Mul 1209 731 1297;
  Mul 1350 665 1270; Add 1209 1209 1350; Mul 1350 727 1651; Mul 1401 701 1588; Add 1442 1350 1401;
  Add 1209 1209 1442; Add 1285 1285 1209; Mul 1209 310 1363; Mul 1442 620 1278; Add 1209 1209 1442;
  Mul 1442 327 1310; Mul 1695 595 1215; Add 1442 1442 1695; Mul 1312 318 1312; Mul 1695 395 1062;
  Add 1139 1312 1695; Add 1442 1442 1139; Add 1209 1209 1442; Sub 1285 1285 1209; Add 1411 1411 1285;
  Mul 1285 4 1411; Mul 1209 720 1284; Add 1285 1285 1209; Add 1395 1395 1285; Mul 1285 728 1034;
  Mul 1209 372 1670; Mul 1442 459 1052; Add 1209 1209 1442; Mul 1442 369 1247; Mul 1139 441 1180;
  Add 1442 1442 1139; Sub 1209 1209 1442; Mul 1442 443 1209; Add 1285 1285 1442; Mul 1442 733 1507;
  Mul 1139 369 1060; Mul 1595 417 1180; Add 1139 1139 1595; Mul 1595 358 1670; Mul 1256 459 1492;
  Add 1595 1595 1256; Sub 1139 1139 1595; Mul 1595 426 1139; Add 1442 1442 1595; Add 1285 1285 1442;
  Mul 1442 734 1082; Mul 1595 358 1247; Mul 1256 441 1492; Add 1595 1595 1256; Mul 1256 372 1060;
  Mul 1171 417 1052; Add 1256 1256 1171; Sub 1595 1595 1256; Mul 1256 478 1595; Add 1442 1442 1256;
  Add 1285 1285 1442; Mul 1442 735 1609; Mul 1256 369 1412; Mul 1171 458 1180].
Definition casadi_f0_532 : list instruction := [
  Add 1256 1256 1171; Mul 1171 358 1110; Mul 1309 451 1492; Add 1171 1171 1309; Sub 1256 1256 1171;
  Mul 1171 736 1670; Mul 1309 372 1131; Mul 1205 437 1052; Add 1309 1309 1205; Mul 1205 369 1347;
  Mul 1150 432 1180; Add 1205 1205 1150; Sub 1309 1309 1205; Mul 1205 459 1309; Add 1171 1171 1205;
  Mul 1205 738 1060; Mul 1347 358 1347; Mul 1150 432 1492; Add 1347 1347 1150; Mul 1150 372 1434;
  Mul 1610 444 1052; Add 1150 1150 1610; Sub 1347 1347 1150; Mul 1150 417 1347; Add 1205 1205 1150;
  Sub 1171 1171 1205; Add 1256 1256 1171; Mul 1171 728 1181; Mul 1205 438 1209; Add 1171 1171 1205;
  Mul 1205 734 1609; Mul 1150 445 1595; Add 1205 1205 1150; Sub 1171 1171 1205; Sub 1256 1256 1171;
  Mul 1256 430 1256; Mul 1171 445 1256; Add 1442 1442 1171; Mul 1171 739 1243; Mul 1110 372 1110;
  Mul 1205 451 1052; Add 1110 1110 1205; Mul 1205 369 1288; Mul 1150 462 1180; Add 1205 1205 1150;
  Sub 1110 1110 1205; Mul 1205 738 1247; Mul 1150 441 1347; Add 1205 1205 1150; Mul 1150 741 1670;
  Mul 1434 369 1434; Mul 1610 444 1180; Add 1434 1434 1610; Mul 1131 358 1131; Mul 1610 437 1492;
  Add 1131 1131 1610; Sub 1434 1434 1131; Mul 1131 459 1434; Add 1150 1150 1131; Sub 1205 1205 1150;
  Add 1110 1110 1205; Mul 1205 734 1243; Mul 1150 434 1595; Add 1205 1205 1150; Mul 1150 733 1181;
  Mul 1131 438 1139; Add 1150 1150 1131; Sub 1205 1205 1150; Sub 1110 1110 1205; Mul 1110 430 1110;
  Mul 1205 434 1110; Add 1171 1171 1205; Sub 1442 1442 1171; Add 1285 1285 1442; Mul 1442 736 1664;
  Mul 1171 648 1309; Add 1442 1442 1171; Mul 1171 741 1547; Mul 1205 669 1434; Add 1171 1171 1205;
  Mul 1205 738 1582; Mul 1150 708 1347; Add 1131 1205 1150; Add 1171 1171 1131; Add 1442 1442 1171;
  Mul 1171 358 1602; Mul 1131 622 1492; Add 1171 1171 1131; Mul 1131 372 1151; Mul 1610 608 1052;
  Add 1131 1131 1610; Mul 1648 369 1648; Mul 1610 449 1180; Add 1532 1648 1610; Add 1131 1131 1532;
  Add 1171 1171 1131; Sub 1442 1442 1171; Add 1285 1285 1442; Mul 1442 5 1285; Mul 1171 732 1592;
  Add 1442 1442 1171; Add 1395 1395 1442; Mul 1442 286 1422; Mul 1171 212 1442; Mul 1171 107 1171;
  Mul 1131 745 1245; Mul 1532 737 1245; Mul 1367 9 1442; Add 1532 1532 1367; Mul 1367 743 1174;
  Mul 1340 286 1678; Mul 1222 8 1340; Add 1367 1367 1222; Sub 1532 1532 1367; Mul 1367 269 1532;
  Mul 1222 81 1367; Mul 1344 746 1410; Mul 1269 743 1245; Mul 1165 9 1340; Sub 1269 1269 1165; Mul 1442 8 1442;
  Mul 1165 737 1174; Sub 1442 1442 1165; Sub 1269 1269 1442; Mul 1442 53 1269; Add 1344 1344 1442;
  Mul 1442 66 1532; Mul 1165 742 1462; Sub 1442 1442 1165; Add 1344 1344 1442; Mul 1442 323 1344;
  Mul 1165 47 1442; Mul 1126 378 1344; Mul 1098 24 1126; Mul 1307 752 1631; Mul 1159 66 1269; Mul 1593 746 1462;
  Sub 1159 1159 1593; Mul 1593 742 1410; Mul 1532 53 1532; Add 1593 1593 1532; Sub 1159 1159 1593;
  Mul 1593 35 1159; Add 1307 1307 1593; Mul 1593 378 1307; Mul 1532 31 1593; Sub 1098 1098 1532;
  Mul 1532 753 1371; Mul 1202 15 1307].
Definition casadi_f0_533 : list instruction := [
  Add 1532 1532 1202; Mul 1202 16 1344; Mul 1101 747 1048; Sub 1202 1202 1101; Add 1532 1532 1202;
  Mul 1532 430 1532; Mul 1202 26 1532; Mul 1307 16 1307; Mul 1101 753 1048; Sub 1307 1307 1101;
  Mul 1101 747 1371; Mul 1344 15 1344; Add 1101 1101 1344; Sub 1307 1307 1101; Mul 1307 430 1307;
  Mul 1101 28 1307; Sub 1202 1202 1101; Mul 1101 16 1532; Mul 1344 755 1048; Sub 1101 1101 1344;
  Mul 1344 757 1371; Mul 1683 15 1307; Add 1344 1344 1683; Sub 1101 1101 1344; Mul 1344 25 1101;
  Mul 1683 16 1307; Mul 1157 757 1048; Sub 1683 1683 1157; Mul 1157 755 1371; Mul 1158 15 1532;
  Add 1157 1157 1158; Add 1683 1683 1157; Mul 1157 32 1683; Sub 1344 1344 1157; Add 1344 1202 1344;
  Add 1098 1098 1344; Mul 1344 19 1098; Mul 1157 751 1531; Sub 1344 1344 1157; Mul 1157 763 1631;
  Mul 1158 19 1159; Mul 1246 752 1531; Sub 1158 1158 1246; Mul 1246 378 1158; Mul 1053 31 1246;
  Mul 1186 380 1126; Sub 1053 1053 1186; Mul 1158 430 1158; Mul 1186 28 1158; Mul 1532 433 1532;
  Sub 1186 1186 1532; Mul 1532 16 1186; Mul 1234 764 1048; Sub 1532 1532 1234; Mul 1234 766 1371;
  Mul 1307 433 1307; Mul 1429 26 1158; Sub 1307 1307 1429; Mul 1429 15 1307; Add 1234 1234 1429;
  Add 1532 1532 1234; Mul 1234 32 1158; Mul 1429 198 1101; Sub 1234 1234 1429; Add 1532 1532 1234;
  Add 1053 1053 1532; Mul 1532 35 1053; Add 1157 1157 1532; Add 1344 1344 1157; Add 1126 1126 1101;
  Mul 1101 48 1126; Add 1157 1593 1683; Mul 1532 19 1157; Mul 1234 765 1531; Sub 1532 1532 1234;
  Mul 1234 768 1631; Add 1429 1246 1158; Mul 1702 35 1429; Add 1234 1234 1702; Sub 1532 1532 1234;
  Mul 1234 55 1532; Sub 1101 1101 1234; Add 1344 1344 1101; Add 1165 1165 1344; Mul 1344 66 1165;
  Mul 1101 749 1462; Sub 1344 1344 1101; Mul 1101 762 1410; Mul 1593 380 1593; Mul 1246 24 1246;
  Sub 1593 1593 1246; Mul 1307 16 1307; Mul 1048 766 1048; Sub 1307 1307 1048; Mul 1371 764 1371;
  Mul 1186 15 1186; Add 1371 1371 1186; Sub 1307 1307 1371; Mul 1683 198 1683; Mul 1158 25 1158;
  Sub 1683 1683 1158; Add 1307 1307 1683; Add 1593 1593 1307; Mul 1307 62 1532; Mul 1429 19 1429;
  Mul 1683 768 1531; Sub 1429 1429 1683; Mul 1683 765 1631; Mul 1157 35 1157; Add 1683 1683 1157;
  Add 1429 1429 1683; Mul 1683 48 1429; Sub 1307 1307 1683; Add 1307 1593 1307; Mul 1159 323 1159;
  Mul 1683 47 1159; Sub 1307 1307 1683; Mul 1683 53 1307; Add 1101 1101 1683; Add 1344 1344 1101;
  Mul 1101 86 1532; Sub 1344 1344 1101; Add 1222 1222 1344; Mul 1344 9 1222; Add 1131 1131 1344;
  Mul 1307 66 1307; Mul 1344 762 1462; Sub 1307 1307 1344; Mul 1344 749 1410; Mul 1165 53 1165;
  Add 1344 1344 1165; Sub 1307 1307 1344; Mul 1344 91 1532; Add 1307 1307 1344; Mul 1269 269 1269;
  Mul 1344 81 1269; Sub 1307 1307 1344; Mul 1344 8 1307; Mul 1165 758 1174; Sub 1344 1344 1165;
  Add 1131 1131 1344; Mul 1532 102 1532; Add 1344 1159 1429; Mul 1165 66 1344; Mul 1101 770 1462;
  Sub 1165 1165 1101; Mul 1101 772 1410; Add 1683 1442 1126; Mul 1157 53 1683].
Definition casadi_f0_534 : list instruction := [
  Add 1101 1101 1157; Add 1165 1165 1101; Add 1101 1269 1165; Mul 1157 8 1101; Mul 1158 773 1174;
  Sub 1157 1157 1158; Mul 1158 776 1245; Mul 1683 66 1683; Mul 1462 772 1462; Sub 1683 1683 1462;
  Mul 1410 770 1410; Mul 1344 53 1344; Add 1410 1410 1344; Sub 1683 1683 1410; Add 1410 1367 1683;
  Mul 1344 9 1410; Add 1158 1158 1344; Sub 1157 1157 1158; Mul 1157 108 1157; Sub 1532 1532 1157;
  Add 1131 1131 1532; Add 1171 1171 1131; Mul 1171 114 1171; Mul 1678 740 1678; Sub 1171 1171 1678;
  Mul 1422 774 1422; Mul 1222 8 1222; Mul 1678 745 1174; Sub 1222 1222 1678; Mul 1678 758 1245; Mul 1307 9 1307;
  Add 1678 1678 1307; Sub 1222 1222 1678; Mul 1245 773 1245; Mul 1101 9 1101; Add 1245 1245 1101;
  Mul 1410 8 1410; Mul 1174 776 1174; Sub 1410 1410 1174; Add 1245 1245 1410; Mul 1410 108 1245;
  Add 1222 1222 1410; Mul 1340 212 1340; Mul 1410 107 1340; Sub 1222 1222 1410; Mul 1222 113 1222;
  Add 1422 1422 1222; Sub 1171 1171 1422; Add 1395 1395 1171; Mul 1171 210 1395; Sub 1514 1514 1171;
  Div 1171 1291 92; Mul 1422 1069 1265; Sub 1171 1171 1422; Mul 1422 779 1171; Add 1513 1513 1418;
  Add 1673 1673 1387; Sub 1513 1513 1673; Add 1573 1573 1109; Add 1030 1030 1372; Sub 1573 1573 1030;
  Add 1393 1393 1573; Sub 1513 1513 1393; Add 1513 1513 1128; Add 1495 1495 1144; Add 1353 1353 1479;
  Sub 1495 1495 1353; Add 1240 1240 1333; Add 1486 1486 1684; Add 1240 1240 1486; Add 1677 1677 1193;
  Add 1518 1518 1283; Sub 1677 1677 1518; Add 1240 1240 1677; Sub 1495 1495 1240; Add 1495 1495 1354;
  Add 1266 1266 1199; Add 1093 1093 1601; Sub 1266 1266 1093; Add 1242 1242 1558; Add 1075 1075 1496;
  Add 1242 1242 1075; Add 1087 1087 1325; Add 1235 1235 1104; Sub 1087 1087 1235; Add 1242 1242 1087;
  Sub 1266 1266 1242; Add 1266 1266 1163; Add 1362 1362 1225; Add 1244 1244 1431; Sub 1362 1362 1244;
  Add 1675 1675 1318; Add 1152 1152 1470; Add 1675 1675 1152; Add 1402 1402 1102; Add 1564 1564 1282;
  Sub 1402 1402 1564; Add 1675 1675 1402; Sub 1362 1362 1675; Add 1362 1362 1476; Add 1660 1660 1123;
  Add 1351 1351 1375; Sub 1660 1660 1351; Add 1597 1597 1227; Add 1416 1416 1261; Add 1597 1597 1416;
  Add 1337 1337 1540; Add 1616 1616 1221; Sub 1337 1337 1616; Add 1597 1597 1337; Sub 1660 1660 1597;
  Add 1660 1660 1649; Add 1362 1362 1660; Add 1266 1266 1362; Add 1495 1495 1266; Add 1513 1513 1495;
  Mul 1513 216 1513; Mul 1649 780 1676; Sub 1513 1513 1649; Mul 1649 781 1448; Add 1024 1024 1192;
  Add 1213 1213 1500; Sub 1024 1024 1213; Sub 1543 1543 1024; Add 1036 1036 1226; Add 1501 1501 1456;
  Sub 1036 1036 1501; Add 1543 1543 1036; Sub 1543 1543 1699; Add 1587 1587 1488; Add 1317 1317 1145;
  Sub 1587 1587 1317; Add 1604 1604 1634; Add 1115 1115 1276; Add 1604 1604 1115; Add 1295 1295 1491;
  Add 1019 1019 1114; Sub 1295 1295 1019; Add 1604 1604 1295; Sub 1587 1587 1604; Sub 1587 1587 1484;
  Add 1200 1200 1173; Add 1403 1403 1021; Sub 1200 1200 1403; Add 1189 1189 1519; Add 1106 1106 1161;
  Add 1189 1189 1106; Add 1420 1420 1263; Add 1450 1450 1613].
Definition casadi_f0_535 : list instruction := [
  Sub 1420 1420 1450; Add 1189 1189 1420; Sub 1200 1200 1189; Sub 1200 1200 1598; Add 1167 1167 1639;
  Add 1606 1606 1091; Sub 1167 1167 1606; Add 1122 1122 1166; Add 1474 1474 1641; Add 1122 1122 1474;
  Add 1018 1018 1268; Add 1686 1686 1451; Sub 1018 1018 1686; Add 1122 1122 1018; Sub 1167 1167 1122;
  Sub 1167 1167 1319; Add 1567 1567 1124; Add 1233 1233 1135; Sub 1567 1567 1233; Add 1468 1468 1682;
  Add 1624 1624 1195; Add 1468 1468 1624; Add 1356 1356 1134; Add 1081 1081 1694; Sub 1356 1356 1081;
  Add 1468 1468 1356; Sub 1567 1567 1468; Sub 1567 1567 1452; Add 1167 1167 1567; Add 1200 1200 1167;
  Add 1587 1587 1200; Add 1543 1543 1587; Mul 1543 215 1543; Add 1649 1649 1543; Sub 1513 1513 1649;
  Sub 1364 1364 1478; Sub 1463 1463 1376; Sub 1088 1088 1505; Sub 1175 1175 1132; Sub 1570 1570 1697;
  Add 1175 1175 1570; Add 1088 1088 1175; Add 1463 1463 1088; Add 1364 1364 1463; Mul 1364 540 1364;
  Mul 1478 625 1549; Sub 1364 1364 1478; Mul 1478 651 1685; Sub 1421 1421 1399; Add 1538 1538 1642;
  Add 1465 1465 1698; Add 1680 1680 1520; Add 1398 1398 1654; Add 1680 1680 1398; Add 1465 1465 1680;
  Add 1538 1538 1465; Add 1421 1421 1538; Mul 1421 544 1421; Add 1478 1478 1421; Add 1364 1364 1478;
  Sub 1513 1513 1364; Mul 1513 0 1513; Mul 1364 23 1594; Add 1513 1513 1364; Mul 1482 508 1482;
  Mul 1364 534 1658; Add 1482 1482 1364; Add 1650 1650 1473; Mul 1025 482 1025; Mul 1141 511 1141;
  Add 1025 1025 1141; Sub 1650 1650 1025; Add 1055 1055 1650; Mul 1332 490 1332; Mul 1459 514 1459;
  Add 1332 1332 1459; Sub 1055 1055 1332; Add 1589 1589 1055; Mul 1305 498 1305; Mul 1439 518 1439;
  Add 1305 1305 1439; Sub 1589 1589 1305; Add 1576 1576 1589; Mul 1324 522 1324; Mul 1230 506 1230;
  Sub 1324 1324 1230; Sub 1576 1576 1324; Mul 1324 526 1576; Mul 1230 784 1365; Add 1324 1324 1230;
  Add 1105 1105 1320; Mul 1374 1304 1374; Add 1323 1323 1374; Mul 1323 20 1323; Add 1105 1105 1323;
  Add 1458 1458 1105; Mul 1076 1153 1076; Add 1590 1590 1076; Mul 1590 37 1590; Add 1458 1458 1590;
  Add 1301 1301 1458; Mul 1308 1212 1308; Add 1118 1118 1308; Mul 1118 80 1118; Add 1301 1301 1118;
  Add 1097 1097 1301; Mul 1537 1293 1537; Add 1475 1475 1537; Mul 1475 100 1475; Sub 1097 1097 1475;
  Mul 1097 536 1097; Mul 1475 496 1447; Add 1097 1097 1475; Add 1324 1324 1097; Sub 1482 1482 1324;
  Mul 1324 546 1146; Mul 1097 538 1632; Add 1324 1324 1097; Mul 1097 791 1142; Mul 1237 215 1237;
  Mul 1475 222 1448; Add 1237 1237 1475; Mul 1182 216 1182; Mul 1475 229 1676; Sub 1182 1182 1475;
  Sub 1237 1237 1182; Mul 1182 540 1016; Mul 1475 227 1549; Sub 1182 1182 1475; Mul 1475 544 1423;
  Mul 1118 219 1685; Add 1475 1475 1118; Sub 1182 1182 1475; Add 1237 1237 1182; Mul 1182 526 1674;
  Mul 1475 543 1365; Add 1182 1182 1475; Mul 1142 536 1142; Mul 1475 537 1447; Add 1142 1142 1475;
  Sub 1182 1182 1142; Sub 1182 1237 1182; Mul 1182 141 1182; Mul 1142 537 1182; Add 1097 1097 1142;
  Sub 1324 1324 1097; Add 1482 1482 1324; Mul 1324 556 1116; Mul 1373 560 1373].
Definition casadi_f0_536 : list instruction := [
  Add 1097 1324 1373; Sub 1314 1097 1314; Sub 1628 1524 1628; Sub 1687 1168 1687; Add 1628 1628 1687;
  Add 1373 1373 1324; Sub 1584 1584 1373; Add 1628 1628 1584; Sub 1314 1314 1628; Mul 1628 570 1542;
  Mul 1229 574 1229; Add 1584 1628 1229; Sub 1143 1584 1143; Sub 1345 1345 1071; Sub 1608 1608 1042;
  Add 1345 1345 1608; Add 1229 1229 1628; Sub 1315 1315 1229; Add 1345 1345 1315; Sub 1143 1143 1345;
  Mul 1345 584 1585; Mul 1272 588 1272; Add 1315 1345 1272; Sub 1303 1315 1303; Sub 1539 1539 1370;
  Sub 1103 1103 1655; Add 1539 1539 1103; Add 1272 1272 1345; Sub 1274 1274 1272; Add 1539 1539 1274;
  Sub 1303 1303 1539; Mul 1539 597 1681; Mul 1162 601 1162; Add 1274 1539 1162; Sub 1368 1274 1368;
  Sub 1329 1329 1455; Sub 1302 1302 1207; Add 1329 1329 1302; Add 1162 1162 1539; Sub 1566 1566 1162;
  Add 1329 1329 1566; Sub 1368 1368 1329; Mul 1329 610 1480; Mul 1172 614 1172; Add 1566 1329 1172;
  Sub 1343 1566 1343; Sub 1047 1047 1433; Sub 1125 1125 1149; Add 1047 1047 1125; Add 1172 1172 1329;
  Sub 1188 1188 1172; Add 1047 1047 1188; Sub 1343 1343 1047; Add 1368 1368 1343; Add 1303 1303 1368;
  Add 1143 1143 1303; Add 1314 1314 1143; Mul 1314 216 1314; Mul 1047 251 1676; Sub 1314 1314 1047;
  Mul 1047 230 1646; Mul 1565 225 1565; Add 1188 1047 1565; Mul 1311 231 1311; Mul 1329 223 1275;
  Sub 1311 1311 1329; Sub 1188 1188 1311; Mul 1512 560 1512; Mul 1329 553 1116; Add 1125 1512 1329;
  Mul 1313 244 1313; Mul 1407 248 1407; Add 1149 1313 1407; Sub 1125 1125 1149; Sub 1188 1188 1125;
  Mul 1116 558 1116; Mul 1436 560 1436; Add 1125 1116 1436; Mul 1426 243 1426; Mul 1251 249 1251;
  Add 1149 1426 1251; Sub 1125 1125 1149; Add 1188 1188 1125; Mul 1032 219 1032; Mul 1423 239 1423;
  Add 1032 1032 1423; Mul 1618 227 1618; Mul 1016 246 1016; Add 1618 1618 1016; Add 1032 1032 1618;
  Mul 1327 467 1327; Mul 1545 525 1545; Sub 1327 1327 1545; Add 1032 1032 1327; Mul 1487 231 1487;
  Mul 1327 559 1275; Sub 1487 1487 1327; Mul 1327 616 1646; Mul 1668 225 1668; Add 1327 1327 1668;
  Add 1487 1487 1327; Add 1032 1032 1487; Mul 1032 213 1032; Sub 1188 1188 1032; Mul 1487 572 1542;
  Mul 1236 574 1236; Add 1327 1487 1236; Mul 1691 284 1691; Mul 1494 258 1494; Add 1668 1691 1494;
  Sub 1327 1327 1668; Mul 1668 297 1388; Mul 1545 271 1620; Add 1618 1668 1545; Mul 1016 282 1049;
  Mul 1423 300 1271; Add 1125 1016 1423; Add 1618 1618 1125; Mul 1581 574 1581; Mul 1542 567 1542;
  Add 1125 1581 1542; Mul 1254 279 1254; Mul 1638 276 1638; Add 1149 1254 1638; Sub 1125 1125 1149;
  Add 1618 1618 1125; Sub 1327 1327 1618; Mul 1206 255 1206; Mul 1618 280 1224; Add 1206 1206 1618;
  Mul 1326 278 1326; Mul 1618 266 1667; Add 1326 1326 1618; Add 1206 1206 1326; Mul 1216 296 1216;
  Mul 1551 472 1551; Add 1216 1216 1551; Add 1206 1206 1216; Mul 1216 573 1271; Mul 1164 282 1164;
  Add 1216 1216 1164; Mul 1164 617 1388; Mul 1346 271 1346; Add 1164 1164 1346; Sub 1216 1216 1164;
  Add 1206 1206 1216; Mul 1206 213 1206; Sub 1327 1327 1206; Mul 1216 586 1585].
Definition casadi_f0_537 : list instruction := [
  Mul 1671 588 1671; Add 1164 1216 1671; Mul 1640 338 1640; Mul 1559 312 1559; Add 1346 1640 1559;
  Sub 1164 1164 1346; Mul 1346 351 1360; Mul 1551 325 1409; Add 1326 1346 1551; Mul 1618 336 1599;
  Mul 1125 354 1560; Add 1149 1618 1125; Add 1326 1326 1149; Mul 1396 588 1396; Mul 1585 581 1585;
  Add 1149 1396 1585; Mul 1089 333 1089; Mul 1394 330 1394; Add 1433 1089 1394; Sub 1149 1149 1433;
  Add 1326 1326 1149; Sub 1164 1164 1326; Mul 1239 309 1239; Mul 1326 334 1074; Add 1239 1239 1326;
  Mul 1348 332 1348; Mul 1326 320 1241; Add 1348 1348 1326; Add 1239 1239 1348; Mul 1424 349 1424;
  Mul 1693 474 1693; Add 1424 1424 1693; Add 1239 1239 1424; Mul 1424 587 1560; Mul 1194 336 1194;
  Add 1424 1424 1194; Mul 1194 619 1360; Mul 1130 325 1130; Add 1194 1194 1130; Sub 1424 1424 1194;
  Add 1239 1239 1424; Mul 1239 213 1239; Sub 1164 1164 1239; Mul 1424 599 1681; Mul 1643 601 1643;
  Add 1194 1424 1643; Mul 1108 393 1108; Mul 1502 366 1502; Add 1130 1108 1502; Sub 1194 1194 1130;
  Mul 1130 406 1208; Mul 1693 381 1571; Add 1348 1130 1693; Mul 1326 391 1250; Mul 1149 409 1701;
  Add 1433 1326 1149; Add 1348 1348 1433; Mul 1154 601 1154; Mul 1681 594 1681; Add 1433 1154 1681;
  Mul 1176 388 1176; Mul 1503 385 1503; Add 1539 1176 1503; Sub 1433 1433 1539; Add 1348 1348 1433;
  Sub 1194 1194 1348; Mul 1509 363 1509; Mul 1348 389 1548; Add 1509 1509 1348; Mul 1211 387 1211;
  Mul 1348 374 1238; Add 1211 1211 1348; Add 1509 1509 1211; Mul 1536 405 1536; Mul 1378 476 1378;
  Add 1536 1536 1378; Add 1509 1509 1536; Mul 1536 600 1701; Mul 1688 391 1688; Add 1536 1536 1688;
  Mul 1688 621 1208; Mul 1204 381 1204; Add 1688 1688 1204; Sub 1536 1536 1688; Add 1509 1509 1536;
  Mul 1509 213 1509; Sub 1194 1194 1509; Mul 1536 612 1480; Mul 1528 614 1528; Add 1688 1536 1528;
  Mul 1647 447 1647; Mul 1338 420 1338; Add 1204 1647 1338; Sub 1688 1688 1204; Mul 1204 460 1243;
  Mul 1378 434 1113; Add 1211 1204 1378; Mul 1348 445 1644; Mul 1433 463 1609; Add 1539 1348 1433;
  Add 1211 1211 1539; Mul 1094 614 1094; Mul 1480 607 1480; Add 1539 1094 1480; Mul 1526 442 1526;
  Mul 1022 439 1022; Add 1302 1526 1022; Sub 1539 1539 1302; Add 1211 1211 1539; Sub 1688 1688 1211;
  Mul 1211 417 1034; Mul 1539 443 1060; Add 1211 1211 1539; Mul 1539 441 1507; Mul 1302 426 1247;
  Add 1539 1539 1302; Add 1211 1211 1539; Mul 1539 459 1082; Mul 1670 478 1670; Add 1539 1539 1670;
  Add 1211 1211 1539; Mul 1539 611 1609; Mul 1419 445 1419; Add 1539 1539 1419; Mul 1419 623 1243;
  Mul 1504 434 1504; Add 1419 1419 1504; Sub 1539 1539 1419; Add 1211 1211 1539; Mul 1211 213 1211;
  Sub 1688 1688 1211; Add 1194 1194 1688; Add 1164 1164 1194; Add 1327 1327 1164; Add 1188 1188 1327;
  Mul 1188 215 1188; Mul 1539 470 1448; Add 1188 1188 1539; Sub 1314 1314 1188; Mul 1188 225 1413;
  Mul 1539 624 1646; Add 1419 1188 1539; Mul 1504 231 1477; Mul 1670 650 1275; Sub 1504 1504 1670;
  Sub 1419 1419 1504; Mul 1445 213 1445; Add 1670 1419 1445; Mul 1271 655 1271].
Definition casadi_f0_538 : list instruction := [
  Mul 1248 282 1248; Add 1302 1271 1248; Sub 1302 1335 1302; Mul 1267 271 1267; Mul 1388 629 1388;
  Add 1207 1267 1388; Add 1302 1302 1207; Mul 1117 213 1117; Sub 1207 1302 1117; Mul 1560 659 1560;
  Mul 1633 336 1633; Add 1455 1560 1633; Sub 1455 1427 1455; Mul 1622 325 1622; Mul 1360 634 1360;
  Add 1345 1622 1360; Add 1455 1455 1345; Mul 1517 213 1517; Sub 1345 1455 1517; Mul 1701 663 1701;
  Mul 1037 391 1037; Add 1103 1701 1037; Sub 1103 1527 1103; Mul 1255 381 1255; Mul 1208 639 1208;
  Add 1655 1255 1208; Add 1103 1103 1655; Mul 1177 213 1177; Sub 1655 1103 1177; Mul 1370 667 1609;
  Mul 1380 445 1380; Add 1628 1370 1380; Sub 1628 1460 1628; Mul 1341 434 1341; Mul 1608 644 1243;
  Add 1042 1341 1608; Add 1628 1628 1042; Mul 1467 213 1467; Sub 1042 1628 1467; Add 1655 1655 1042;
  Add 1345 1345 1655; Add 1207 1207 1345; Add 1670 1670 1207; Mul 1670 540 1670; Mul 1071 250 1549;
  Sub 1670 1670 1071; Mul 1477 225 1477; Mul 1646 650 1646; Add 1071 1477 1646; Mul 1413 231 1413;
  Mul 1275 624 1275; Sub 1413 1413 1275; Add 1646 1646 1477; Mul 1038 242 1038; Mul 1457 626 1457;
  Sub 1038 1038 1457; Add 1457 1646 1038; Add 1477 1413 1457; Sub 1477 1071 1477; Add 1071 1071 1038;
  Add 1413 1413 1071; Sub 1646 1646 1413; Sub 1477 1477 1646; Sub 1277 1277 1696; Sub 1679 1679 1185;
  Sub 1277 1277 1679; Sub 1583 1583 1523; Sub 1223 1223 1112; Sub 1583 1583 1223; Sub 1510 1510 1121;
  Sub 1499 1499 1300; Sub 1510 1510 1499; Sub 1289 1289 1296; Sub 1511 1511 1281; Sub 1289 1289 1511;
  Add 1510 1510 1289; Add 1583 1583 1510; Add 1277 1277 1583; Add 1477 1477 1277; Mul 1511 544 1477;
  Mul 1281 806 1685; Add 1511 1511 1281; Add 1670 1670 1511; Sub 1314 1314 1670; Add 1482 1482 1314;
  Mul 1482 216 1482; Mul 1314 652 1676; Sub 1482 1482 1314; Mul 1314 804 1448; Mul 1257 508 1257;
  Mul 1670 521 1658; Add 1257 1257 1670; Add 1546 1546 1374; Mul 1546 20 1546; Add 1111 1111 1203;
  Sub 1546 1546 1111; Sub 1603 1546 1603; Add 1339 1339 1076; Mul 1339 37 1339; Add 1603 1603 1339;
  Sub 1441 1603 1441; Add 1497 1497 1308; Mul 1497 80 1497; Add 1441 1441 1497; Add 1120 1120 1441;
  Sub 1672 1672 1537; Mul 1672 100 1672; Add 1120 1120 1672; Mul 1120 526 1120; Mul 1672 499 1365;
  Add 1120 1120 1672; Mul 1576 536 1576; Mul 1672 784 1447; Add 1576 1576 1672; Add 1120 1120 1576;
  Sub 1257 1257 1120; Mul 1674 791 1674; Mul 1182 543 1182; Add 1674 1674 1182; Mul 1146 539 1146;
  Mul 1182 538 1369; Add 1146 1146 1182; Sub 1674 1674 1146; Add 1257 1257 1674; Add 1565 1565 1047;
  Sub 1565 1565 1311; Add 1251 1251 1426; Add 1436 1436 1116; Sub 1251 1251 1436; Sub 1565 1565 1251;
  Add 1407 1407 1313; Add 1329 1329 1512; Sub 1407 1407 1329; Add 1565 1565 1407; Add 1565 1565 1032;
  Add 1638 1638 1254; Add 1542 1542 1581; Sub 1638 1638 1542; Add 1423 1423 1016; Add 1545 1545 1668;
  Add 1423 1423 1545; Add 1494 1494 1691; Add 1236 1236 1487; Sub 1494 1494 1236; Add 1423 1423 1494;
  Sub 1638 1638 1423; Add 1638 1638 1206; Add 1394 1394 1089; Add 1585 1585 1396].
Definition casadi_f0_539 : list instruction := [
  Sub 1394 1394 1585; Add 1125 1125 1618; Add 1551 1551 1346; Add 1125 1125 1551; Add 1559 1559 1640;
  Add 1671 1671 1216; Sub 1559 1559 1671; Add 1125 1125 1559; Sub 1394 1394 1125; Add 1394 1394 1239;
  Add 1503 1503 1176; Add 1681 1681 1154; Sub 1503 1503 1681; Add 1149 1149 1326; Add 1693 1693 1130;
  Add 1149 1149 1693; Add 1502 1502 1108; Add 1643 1643 1424; Sub 1502 1502 1643; Add 1149 1149 1502;
  Sub 1503 1503 1149; Add 1503 1503 1509; Add 1022 1022 1526; Add 1480 1480 1094; Sub 1022 1022 1480;
  Add 1433 1433 1348; Add 1378 1378 1204; Add 1433 1433 1378; Add 1338 1338 1647; Add 1528 1528 1536;
  Sub 1338 1338 1528; Add 1433 1433 1338; Sub 1022 1022 1433; Add 1022 1022 1211; Add 1503 1503 1022;
  Add 1394 1394 1503; Add 1638 1638 1394; Add 1565 1565 1638; Mul 1565 216 1565; Mul 1211 507 1676;
  Sub 1565 1565 1211; Add 1168 1168 1524; Sub 1373 1373 1529; Sub 1168 1168 1373; Sub 1555 1555 1097;
  Add 1168 1168 1555; Add 1358 1358 1665; Sub 1229 1229 1210; Sub 1358 1358 1229; Sub 1279 1279 1584;
  Add 1358 1358 1279; Add 1454 1454 1425; Sub 1272 1272 1187; Sub 1454 1454 1272; Sub 1666 1666 1315;
  Add 1454 1454 1666; Add 1586 1586 1572; Sub 1162 1162 1525; Sub 1586 1586 1162; Sub 1577 1577 1274;
  Add 1586 1586 1577; Add 1689 1689 1580; Sub 1172 1172 1489; Sub 1689 1689 1172; Sub 1621 1621 1566;
  Add 1689 1689 1621; Add 1586 1586 1689; Add 1454 1454 1586; Add 1358 1358 1454; Add 1168 1168 1358;
  Mul 1168 215 1168; Mul 1621 226 1448; Add 1168 1168 1621; Sub 1565 1565 1168; Sub 1071 1071 1457;
  Sub 1077 1077 1084; Sub 1464 1464 1563; Sub 1535 1535 1359; Sub 1574 1574 1656; Add 1535 1535 1574;
  Add 1464 1464 1535; Add 1077 1077 1464; Add 1071 1071 1077; Mul 1656 540 1071; Mul 1359 805 1549;
  Sub 1656 1656 1359; Add 1539 1539 1188; Sub 1504 1504 1539; Sub 1539 1504 1445; Add 1248 1248 1271;
  Add 1388 1388 1267; Add 1335 1335 1388; Sub 1248 1248 1335; Add 1335 1248 1117; Add 1633 1633 1560;
  Add 1360 1360 1622; Add 1427 1427 1360; Sub 1633 1633 1427; Add 1427 1633 1517; Add 1037 1037 1701;
  Add 1208 1208 1255; Add 1527 1527 1208; Sub 1037 1037 1527; Add 1527 1037 1177; Add 1380 1380 1370;
  Add 1608 1608 1341; Add 1460 1460 1608; Sub 1380 1380 1460; Add 1460 1380 1467; Add 1527 1527 1460;
  Add 1427 1427 1527; Add 1335 1335 1427; Add 1539 1539 1335; Mul 1539 544 1539; Mul 1608 693 1685;
  Add 1539 1539 1608; Add 1656 1656 1539; Sub 1565 1565 1656; Add 1257 1257 1565; Mul 1257 215 1257;
  Add 1314 1314 1257; Sub 1482 1482 1314; Sub 1419 1419 1445; Add 1302 1302 1117; Add 1455 1455 1517;
  Add 1103 1103 1177; Add 1628 1628 1467; Add 1103 1103 1628; Add 1455 1455 1103; Add 1302 1302 1455;
  Add 1419 1419 1302; Mul 1419 216 1419; Mul 1314 305 1676; Sub 1419 1419 1314; Mul 1071 215 1071;
  Mul 1314 805 1448; Add 1071 1071 1314; Sub 1419 1419 1071; Add 1632 1632 1419; Mul 1632 540 1632;
  Mul 1419 307 1549; Sub 1632 1632 1419; Mul 1419 360 1685; Mul 1477 216 1477; Mul 1071 806 1676;
  Sub 1477 1477 1071; Add 1504 1504 1445; Sub 1248 1248 1117; Sub 1633 1633 1517].
Definition casadi_f0_540 : list instruction := [
  Sub 1037 1037 1177; Sub 1380 1380 1467; Add 1037 1037 1380; Add 1633 1633 1037; Add 1248 1248 1633;
  Add 1504 1504 1248; Mul 1504 215 1504; Mul 1467 700 1448; Add 1504 1504 1467; Sub 1477 1477 1504;
  Add 1369 1369 1477; Mul 1369 544 1369; Add 1419 1419 1369; Add 1632 1632 1419; Sub 1482 1482 1632;
  Mul 1482 1 1482; Mul 1632 469 1292; Add 1482 1482 1632; Add 1513 1513 1482; Mul 1482 602 1589;
  Mul 1632 783 1663; Add 1482 1482 1632; Mul 1632 670 1301; Mul 1419 488 1469; Add 1632 1632 1419;
  Add 1482 1482 1632; Mul 1632 671 1522; Mul 1419 532 1552; Add 1632 1632 1419; Sub 1482 1482 1632;
  Mul 1632 679 1444; Mul 1419 523 1579; Add 1632 1632 1419; Mul 1419 796 1383; Mul 1224 680 1224;
  Mul 1369 255 1179; Add 1224 1224 1369; Mul 1667 674 1667; Mul 1369 278 1440; Sub 1667 1667 1369;
  Sub 1224 1224 1667; Mul 1148 216 1148; Mul 1667 294 1676; Sub 1148 1148 1667; Mul 1461 215 1461;
  Mul 1667 299 1448; Add 1461 1461 1667; Add 1148 1148 1461; Sub 1224 1224 1148; Mul 1148 670 1383;
  Mul 1461 502 1469; Add 1148 1148 1461; Mul 1461 602 1349; Mul 1667 505 1663; Add 1461 1461 1667;
  Sub 1148 1148 1461; Sub 1148 1224 1148; Mul 1148 672 1148; Mul 1461 502 1148; Add 1419 1419 1461;
  Sub 1632 1632 1419; Add 1482 1482 1632; Mul 1632 674 1207; Mul 1419 794 1440; Sub 1632 1632 1419;
  Mul 1419 680 1277; Mul 1461 689 1179; Add 1667 1419 1461; Add 1191 1191 1079; Add 1258 1258 1533;
  Add 1620 1620 1258; Sub 1191 1191 1620; Add 1620 1191 1642; Add 1119 1119 1556; Add 1140 1140 1453;
  Add 1409 1409 1140; Sub 1119 1119 1409; Add 1409 1119 1698; Add 1466 1466 1389; Add 1384 1384 1515;
  Add 1571 1571 1384; Sub 1466 1466 1571; Add 1571 1466 1520; Add 1605 1605 1183; Add 1417 1417 1438;
  Add 1113 1113 1417; Sub 1605 1605 1113; Add 1113 1605 1654; Add 1571 1571 1113; Add 1409 1409 1571;
  Add 1620 1620 1409; Mul 1620 676 1620; Mul 1417 410 1481; Add 1620 1620 1417; Sub 1667 1667 1620;
  Add 1632 1632 1667; Mul 1667 215 1327; Mul 1620 461 1448; Add 1667 1667 1620; Mul 1143 216 1143;
  Mul 1620 277 1676; Sub 1143 1143 1620; Sub 1667 1667 1143; Add 1632 1632 1667; Add 1482 1482 1632;
  Mul 1482 216 1482; Mul 1632 707 1676; Sub 1482 1482 1632; Mul 1632 793 1448; Mul 1667 602 1441;
  Mul 1620 491 1663; Add 1667 1667 1620; Mul 1620 670 1589; Mul 1417 783 1469; Add 1620 1620 1417;
  Add 1667 1667 1620; Mul 1620 671 1554; Mul 1417 517 1552; Add 1620 1620 1417; Sub 1667 1667 1620;
  Mul 1620 796 1349; Mul 1417 505 1148; Add 1620 1620 1417; Mul 1417 675 1444; Mul 1438 523 1107;
  Add 1417 1417 1438; Sub 1620 1620 1417; Add 1667 1667 1620; Mul 1620 674 1077; Mul 1417 682 1440;
  Sub 1620 1620 1417; Mul 1417 680 1335; Mul 1438 808 1179; Add 1417 1417 1438; Add 1017 1017 1156;
  Sub 1049 1049 1017; Add 1231 1231 1432; Add 1049 1049 1231; Sub 1231 1049 1376; Add 1645 1645 1196;
  Sub 1599 1599 1645; Add 1406 1406 1096; Add 1599 1599 1406; Sub 1406 1599 1505; Add 1544 1544 1330;
  Sub 1250 1250 1544; Add 1287 1287 1090; Add 1250 1250 1287; Sub 1287 1250 1132].
Definition casadi_f0_541 : list instruction := [
  Add 1086 1086 1219; Sub 1644 1644 1086; Add 1137 1137 1575; Add 1644 1644 1137; Sub 1137 1644 1697;
  Add 1287 1287 1137; Add 1406 1406 1287; Add 1231 1231 1406; Mul 1231 676 1231; Mul 1575 301 1481;
  Add 1231 1231 1575; Sub 1417 1417 1231; Add 1417 1620 1417; Mul 1358 215 1358; Mul 1231 303 1448;
  Add 1575 1358 1231; Mul 1086 216 1638; Mul 1219 468 1676; Sub 1086 1086 1219; Sub 1575 1575 1086;
  Add 1417 1417 1575; Add 1667 1667 1417; Mul 1667 215 1667; Add 1632 1632 1667; Sub 1667 1482 1632;
  Mul 1077 215 1077; Mul 1417 682 1448; Add 1575 1077 1417; Mul 1086 216 1302; Mul 1219 792 1676;
  Sub 1086 1086 1219; Sub 1575 1575 1086; Add 1579 1579 1575; Mul 1575 540 1579; Mul 1086 233 1549;
  Sub 1575 1575 1086; Mul 1086 789 1685; Mul 1219 215 1248; Mul 1090 686 1448; Add 1219 1219 1090;
  Mul 1277 216 1277; Mul 1090 689 1676; Sub 1277 1277 1090; Sub 1219 1219 1277; Add 1107 1107 1219;
  Mul 1219 544 1107; Add 1086 1086 1219; Add 1575 1575 1086; Sub 1667 1667 1575; Mul 1667 2 1667;
  Mul 1575 285 1659; Add 1667 1667 1575; Add 1513 1513 1667; Mul 1667 677 1611; Mul 1575 530 1627;
  Add 1667 1667 1575; Mul 1575 706 1055; Mul 1086 782 1099; Add 1575 1575 1086; Mul 1086 712 1458;
  Mul 1219 481 1386; Add 1086 1086 1219; Add 1575 1575 1086; Sub 1667 1667 1575; Mul 1575 719 1127;
  Mul 1086 519 1562; Add 1575 1575 1086; Mul 1086 709 1232; Mul 1662 216 1662; Mul 1219 348 1676;
  Sub 1662 1662 1219; Mul 1506 215 1506; Mul 1219 353 1448; Add 1506 1506 1219; Add 1662 1662 1506;
  Mul 1241 714 1241; Mul 1506 332 1557; Add 1241 1241 1506; Mul 1074 718 1074; Mul 1506 309 1493;
  Add 1074 1074 1506; Sub 1241 1241 1074; Add 1662 1662 1241; Mul 1241 706 1617; Mul 1074 497 1099;
  Add 1241 1241 1074; Mul 1074 712 1232; Mul 1506 494 1386; Add 1074 1074 1506; Sub 1241 1241 1074;
  Sub 1241 1662 1241; Mul 1241 156 1241; Mul 1074 494 1241; Add 1086 1086 1074; Sub 1575 1575 1086;
  Add 1667 1667 1575; Mul 1575 716 1409; Mul 1086 403 1449; Add 1575 1575 1086; Mul 1086 718 1583;
  Mul 1074 696 1493; Add 1506 1086 1074; Sub 1575 1575 1506; Mul 1506 714 1345; Mul 1219 797 1557;
  Add 1506 1506 1219; Sub 1575 1575 1506; Mul 1303 216 1303; Mul 1506 331 1676; Sub 1303 1303 1506;
  Mul 1506 215 1164; Mul 1219 414 1448; Add 1506 1506 1219; Sub 1506 1303 1506; Add 1575 1575 1506;
  Add 1667 1667 1575; Mul 1667 216 1667; Mul 1575 790 1676; Sub 1667 1667 1575; Mul 1575 704 1448;
  Mul 1506 677 1280; Mul 1219 513 1627; Add 1506 1506 1219; Mul 1219 706 1603; Mul 1090 483 1099;
  Add 1219 1219 1090; Mul 1090 712 1055; Mul 1544 782 1386; Add 1090 1090 1544; Add 1219 1219 1090;
  Sub 1506 1506 1219; Mul 1219 709 1617; Mul 1090 497 1241; Add 1219 1219 1090; Mul 1090 711 1127;
  Mul 1544 519 1471; Add 1090 1090 1544; Sub 1219 1219 1090; Add 1506 1506 1219; Mul 1219 716 1406;
  Mul 1090 293 1449; Add 1219 1219 1090; Mul 1090 718 1427; Mul 1544 415 1493; Add 1090 1090 1544;
  Sub 1219 1219 1090; Mul 1090 714 1464; Mul 1544 685 1557; Add 1330 1090 1544].
Definition casadi_f0_542 : list instruction := [
  Sub 1219 1219 1330; Mul 1330 216 1394; Mul 1096 416 1676; Sub 1330 1330 1096; Mul 1454 215 1454;
  Mul 1096 357 1448; Add 1645 1454 1096; Sub 1330 1330 1645; Add 1219 1219 1330; Add 1506 1506 1219;
  Mul 1506 215 1506; Add 1575 1575 1506; Sub 1506 1667 1575; Mul 1219 216 1455; Mul 1330 795 1676;
  Sub 1219 1219 1330; Mul 1464 215 1464; Mul 1330 685 1448; Add 1645 1464 1330; Sub 1219 1219 1645;
  Add 1562 1562 1219; Mul 1219 540 1562; Mul 1645 697 1549; Sub 1219 1219 1645; Mul 1645 695 1685;
  Mul 1583 216 1583; Mul 1196 696 1676; Sub 1583 1583 1196; Mul 1196 215 1633; Mul 1432 448 1448;
  Add 1196 1196 1432; Sub 1196 1583 1196; Add 1471 1471 1196; Mul 1196 544 1471; Add 1645 1645 1196;
  Add 1219 1219 1645; Sub 1219 1506 1219; Mul 1219 3 1219; Mul 1645 691 1170; Add 1219 1219 1645;
  Add 1513 1513 1219; Mul 1219 715 1650; Mul 1645 606 1051; Add 1219 1219 1645; Mul 1645 721 1105;
  Mul 1196 786 1652; Add 1645 1645 1196; Add 1219 1219 1645; Mul 1645 722 1228; Mul 1196 528 1541;
  Add 1645 1645 1196; Add 1219 1219 1645; Mul 1645 730 1252; Mul 1196 515 1316; Add 1645 1645 1196;
  Mul 1196 683 1190; Mul 1169 310 1169; Mul 1432 408 1278; Add 1169 1169 1432; Mul 1352 327 1352;
  Mul 1432 404 1215; Add 1352 1352 1432; Sub 1169 1169 1352; Mul 1548 731 1548; Mul 1352 363 1270;
  Add 1548 1548 1352; Mul 1238 725 1238; Mul 1352 387 1400; Add 1238 1238 1352; Sub 1548 1548 1238;
  Add 1169 1169 1548; Mul 1548 721 1190; Mul 1238 486 1652; Add 1548 1548 1238; Mul 1238 715 1147;
  Mul 1352 489 1051; Add 1238 1238 1352; Sub 1548 1548 1238; Sub 1548 1169 1548; Mul 1548 723 1548;
  Mul 1238 486 1548; Add 1196 1196 1238; Sub 1645 1645 1196; Add 1219 1219 1645; Mul 1645 725 1655;
  Mul 1196 800 1400; Add 1645 1645 1196; Mul 1196 731 1510; Mul 1238 703 1270; Add 1352 1196 1238;
  Mul 1432 727 1571; Mul 1017 306 1588; Add 1432 1432 1017; Add 1352 1352 1432; Add 1645 1645 1352;
  Mul 1352 310 1194; Mul 1432 361 1278; Add 1352 1352 1432; Mul 1368 327 1368; Mul 1432 386 1215;
  Add 1017 1368 1432; Mul 1156 318 1362; Mul 1438 59 1062; Add 1156 1156 1438; Add 1017 1017 1156;
  Add 1352 1352 1017; Sub 1645 1645 1352; Add 1219 1219 1645; Mul 1645 216 1219; Mul 1352 690 1676;
  Sub 1645 1645 1352; Mul 1352 807 1448; Mul 1017 715 1546; Mul 1156 705 1051; Add 1017 1017 1156;
  Mul 1156 721 1650; Mul 1438 606 1652; Add 1156 1156 1438; Add 1017 1017 1156; Mul 1156 722 1700;
  Mul 1438 510 1541; Add 1156 1156 1438; Add 1017 1017 1156; Mul 1156 683 1147; Mul 1438 489 1548;
  Add 1156 1156 1438; Mul 1438 726 1252; Mul 1183 515 1133; Add 1438 1438 1183; Sub 1156 1156 1438;
  Add 1017 1017 1156; Mul 1156 725 1535; Mul 1438 692 1400; Add 1183 1156 1438; Mul 1384 731 1527;
  Mul 1515 465 1270; Add 1384 1384 1515; Mul 1515 727 1287; Mul 1389 785 1588; Add 1515 1515 1389;
  Add 1384 1384 1515; Add 1183 1183 1384; Mul 1586 310 1586; Mul 1384 412 1278; Add 1515 1586 1384;
  Mul 1389 327 1503; Mul 1140 407 1215; Add 1389 1389 1140; Mul 1140 318 1167].
Definition casadi_f0_543 : list instruction := [
  Mul 1453 580 1062; Add 1140 1140 1453; Add 1389 1389 1140; Add 1515 1515 1389; Sub 1183 1183 1515;
  Add 1017 1017 1183; Mul 1183 215 1017; Add 1352 1352 1183; Sub 1183 1645 1352; Mul 1535 310 1535;
  Mul 1515 692 1278; Add 1389 1535 1515; Mul 1140 327 1103; Mul 1453 798 1215; Add 1140 1140 1453;
  Mul 1453 318 1175; Mul 1556 640 1062; Add 1453 1453 1556; Add 1140 1140 1453; Add 1389 1389 1140;
  Sub 1316 1316 1389; Mul 1389 540 1316; Mul 1140 811 1549; Sub 1389 1389 1140; Mul 1140 813 1685;
  Mul 1453 310 1037; Mul 1556 464 1278; Add 1453 1453 1556; Mul 1510 327 1510; Mul 1556 703 1215;
  Add 1258 1510 1556; Mul 1533 318 1680; Mul 1079 662 1062; Add 1533 1533 1079; Add 1258 1258 1533;
  Add 1453 1453 1258; Sub 1133 1133 1453; Mul 1453 544 1133; Add 1140 1140 1453; Add 1389 1389 1140;
  Sub 1389 1183 1389; Mul 1389 4 1389; Mul 1140 812 1284; Add 1389 1389 1140; Add 1513 1513 1389;
  Mul 1389 728 1473; Mul 1140 609 1209; Add 1389 1389 1140; Mul 1140 733 1320; Mul 1453 604 1139;
  Add 1140 1140 1453; Add 1389 1389 1140; Mul 1140 734 1507; Mul 1453 426 1595; Add 1140 1140 1453;
  Add 1389 1389 1140; Mul 1140 739 1181; Mul 1453 438 1110; Add 1140 1140 1453; Mul 1453 816 1609;
  Mul 1288 358 1288; Mul 1258 462 1492; Add 1288 1288 1258; Mul 1412 372 1412; Mul 1258 458 1052;
  Add 1412 1412 1258; Sub 1288 1288 1412; Mul 1060 741 1060; Mul 1412 417 1434; Add 1060 1060 1412;
  Mul 1247 736 1247; Mul 1412 441 1309; Add 1247 1247 1412; Sub 1060 1060 1247; Add 1288 1288 1060;
  Mul 1060 733 1609; Mul 1247 445 1139; Add 1060 1060 1247; Mul 1247 728 1243; Mul 1412 434 1209;
  Add 1247 1247 1412; Sub 1060 1060 1247; Sub 1288 1288 1060; Mul 1288 430 1288; Mul 1060 445 1288;
  Add 1453 1453 1060; Sub 1140 1140 1453; Add 1389 1389 1140; Mul 1140 736 1042; Mul 1453 803 1309;
  Add 1140 1140 1453; Mul 1453 741 1289; Mul 1060 710 1434; Add 1247 1453 1060; Mul 1412 738 1113;
  Mul 1258 356 1347; Add 1412 1412 1258; Add 1247 1247 1412; Add 1140 1140 1247; Mul 1247 358 1688;
  Mul 1412 352 1492; Add 1247 1247 1412; Mul 1343 372 1343; Mul 1412 440 1052; Add 1258 1343 1412;
  Mul 1533 369 1660; Mul 1079 36 1180; Add 1533 1533 1079; Add 1258 1258 1533; Add 1247 1247 1258;
  Sub 1140 1140 1247; Add 1389 1389 1140; Mul 1140 216 1389; Mul 1247 814 1676; Sub 1140 1140 1247;
  Mul 1247 817 1448; Mul 1209 13 1209; Mul 1258 728 1203; Sub 1209 1209 1258; Mul 1258 733 1473;
  Mul 1139 609 1139; Add 1258 1258 1139; Add 1209 1209 1258; Mul 1258 734 1034; Mul 1595 443 1595;
  Add 1258 1258 1595; Add 1209 1209 1258; Mul 1258 816 1243; Mul 1595 434 1288; Add 1258 1258 1595;
  Mul 1595 735 1181; Mul 1139 438 1256; Add 1595 1595 1139; Sub 1258 1258 1595; Add 1209 1209 1258;
  Mul 1258 736 1574; Mul 1595 699 1309; Add 1139 1258 1595; Mul 1533 741 1460; Mul 1079 394 1434;
  Add 1533 1533 1079; Mul 1079 738 1137; Mul 1369 245 1347; Add 1079 1079 1369; Add 1533 1533 1079;
  Add 1139 1139 1533; Mul 1689 358 1689; Mul 1533 466 1492; Add 1079 1689 1533].
Definition casadi_f0_544 : list instruction := [
  Mul 1369 372 1022; Mul 1477 359 1052; Add 1369 1369 1477; Mul 1477 369 1567; Mul 1504 593 1180;
  Add 1477 1477 1504; Add 1369 1369 1477; Add 1079 1079 1369; Sub 1139 1139 1079; Add 1209 1209 1139;
  Mul 1139 215 1209; Add 1247 1247 1139; Sub 1139 1140 1247; Mul 1574 358 1574; Mul 1079 699 1492;
  Add 1369 1574 1079; Mul 1477 372 1628; Mul 1504 801 1052; Add 1477 1477 1504; Mul 1504 369 1570;
  Mul 1467 645 1180; Add 1504 1504 1467; Add 1477 1477 1504; Add 1369 1369 1477; Sub 1110 1110 1369;
  Mul 1369 540 1110; Mul 1477 820 1549; Sub 1369 1369 1477; Mul 1477 822 1685; Mul 1504 358 1380;
  Mul 1467 457 1492; Add 1504 1504 1467; Mul 1289 372 1289; Mul 1467 710 1052; Add 1177 1289 1467;
  Mul 1517 369 1398; Mul 1117 666 1180; Add 1517 1517 1117; Add 1177 1177 1517; Add 1504 1504 1177;
  Sub 1256 1256 1504; Mul 1504 544 1256; Add 1477 1477 1504; Add 1369 1369 1477; Sub 1369 1139 1369;
  Mul 1369 5 1369; Mul 1477 821 1592; Add 1369 1369 1477; Add 1513 1513 1369; Mul 1269 85 1269;
  Mul 1367 79 1367; Sub 1269 1269 1367; Mul 1159 54 1159; Mul 1442 61 1442; Sub 1159 1159 1442;
  Mul 1053 19 1053; Mul 1442 763 1531; Sub 1053 1053 1442; Mul 1442 751 1631; Mul 1098 35 1098;
  Add 1442 1442 1098; Sub 1053 1053 1442; Mul 1429 55 1429; Mul 1126 62 1126; Sub 1429 1429 1126;
  Add 1053 1053 1429; Add 1159 1159 1053; Mul 1165 86 1165; Mul 1683 91 1683; Sub 1165 1165 1683;
  Add 1165 1159 1165; Add 1269 1269 1165; Mul 1245 102 1245; Sub 1245 1269 1245; Mul 1340 101 1340;
  Add 1245 1245 1340; Add 1513 1513 1245; Mul 1245 777 1513; Sub 1422 1422 1245; Add 1514 1514 1422;
  Div 1422 1377 92; Mul 1245 1023 1265; Sub 1422 1422 1245; Mul 1245 767 1422; Mul 1463 674 1463;
  Mul 1340 630 1440; Sub 1463 1463 1340; Mul 1340 654 1179; Mul 1538 680 1538; Add 1340 1340 1538;
  Add 1415 1415 1657; Sub 1340 1340 1415; Add 1463 1463 1340; Mul 1340 615 1448; Mul 1587 215 1587;
  Add 1340 1340 1587; Mul 1495 216 1495; Mul 1587 7 1676; Sub 1495 1495 1587; Sub 1340 1340 1495;
  Add 1463 1463 1340; Mul 1463 0 1463; Mul 1340 771 1594; Add 1463 1463 1340; Mul 1340 748 1392;
  Mul 1495 216 1444; Mul 1587 523 1676; Sub 1495 1495 1587; Add 1495 1440 1495; Mul 1495 672 1495;
  Mul 1587 545 1495; Sub 1340 1340 1587; Mul 1587 216 1383; Mul 1415 502 1676; Sub 1587 1587 1415;
  Mul 1415 215 1349; Mul 1657 505 1448; Add 1415 1415 1657; Add 1587 1587 1415; Sub 1587 1587 1481;
  Mul 1587 672 1587; Mul 1415 504 1587; Mul 1657 750 1237; Add 1415 1415 1657; Mul 1657 215 1444;
  Mul 1538 523 1448; Add 1657 1657 1538; Sub 1657 1179 1657; Mul 1657 672 1657; Mul 1538 541 1657;
  Mul 1165 627 1653; Add 1538 1538 1165; Sub 1415 1415 1538; Add 1340 1340 1415; Mul 1554 215 1554;
  Mul 1415 517 1448; Add 1554 1554 1415; Mul 1522 216 1522; Mul 1415 532 1676; Sub 1522 1522 1415;
  Sub 1554 1554 1522; Mul 1522 627 1383; Mul 1415 502 1657; Add 1522 1522 1415; Mul 1415 748 1349;
  Mul 1538 505 1495; Sub 1415 1415 1538; Sub 1522 1522 1415; Add 1554 1554 1522].
Definition casadi_f0_545 : list instruction := [
  Mul 1554 508 1554; Mul 1522 744 1658; Add 1554 1554 1522; Mul 1522 215 1589; Mul 1415 783 1448;
  Add 1522 1522 1415; Mul 1301 216 1301; Mul 1415 488 1676; Sub 1301 1301 1415; Sub 1522 1522 1301;
  Mul 1301 748 1444; Mul 1495 523 1495; Sub 1301 1301 1495; Mul 1383 750 1383; Mul 1495 502 1587;
  Add 1383 1383 1495; Sub 1301 1301 1383; Add 1522 1522 1301; Mul 1522 536 1522; Mul 1301 824 1447;
  Add 1522 1522 1301; Sub 1554 1554 1522; Mul 1441 215 1441; Mul 1522 491 1448; Add 1441 1441 1522;
  Mul 1589 216 1589; Mul 1522 783 1676; Sub 1589 1589 1522; Sub 1441 1441 1589; Mul 1349 750 1349;
  Mul 1587 505 1587; Add 1349 1349 1587; Mul 1444 627 1444; Mul 1657 523 1657; Add 1444 1444 1657;
  Sub 1349 1349 1444; Add 1441 1441 1349; Mul 1441 526 1441; Mul 1349 825 1365; Add 1441 1441 1349;
  Sub 1554 1554 1441; Add 1340 1340 1554; Mul 1302 674 1302; Mul 1554 792 1440; Sub 1302 1302 1554;
  Add 1461 1461 1419; Mul 1419 298 1481; Sub 1191 1191 1642; Sub 1119 1119 1698; Sub 1466 1466 1520;
  Sub 1605 1605 1654; Add 1466 1466 1605; Add 1119 1119 1466; Add 1191 1191 1119; Mul 1654 676 1191;
  Add 1419 1419 1654; Sub 1461 1461 1419; Add 1302 1302 1461; Mul 1461 468 1448; Mul 1638 215 1638;
  Add 1461 1461 1638; Sub 1461 1461 1143; Add 1302 1302 1461; Mul 1302 216 1302; Mul 1461 823 1676;
  Sub 1302 1302 1461; Mul 1461 686 1179; Mul 1248 680 1248; Add 1461 1461 1248; Mul 1248 232 1481;
  Add 1049 1049 1376; Add 1599 1599 1505; Add 1250 1250 1132; Add 1644 1644 1697; Add 1250 1250 1644;
  Add 1599 1599 1250; Add 1049 1049 1599; Mul 1697 676 1049; Add 1248 1248 1697; Sub 1461 1461 1248;
  Add 1620 1620 1461; Add 1231 1231 1358; Mul 1327 216 1327; Mul 1358 461 1676; Sub 1327 1327 1358;
  Sub 1231 1231 1327; Add 1620 1620 1231; Mul 1620 215 1620; Mul 1231 668 1448; Add 1620 1620 1231;
  Sub 1302 1302 1620; Add 1417 1417 1077; Mul 1207 216 1207; Mul 1077 794 1676; Sub 1207 1207 1077;
  Sub 1417 1417 1207; Mul 1417 540 1417; Mul 1207 664 1549; Sub 1417 1417 1207; Mul 1207 808 1448;
  Mul 1335 215 1335; Add 1207 1207 1335; Sub 1207 1207 1277; Mul 1207 544 1207; Mul 1277 642 1685;
  Add 1207 1207 1277; Add 1417 1417 1207; Sub 1302 1302 1417; Add 1340 1340 1302; Mul 1340 1 1340;
  Mul 1302 760 1292; Add 1340 1340 1302; Add 1463 1463 1340; Mul 1579 674 1579; Mul 1340 233 1440;
  Sub 1579 1579 1340; Mul 1340 789 1179; Mul 1107 680 1107; Add 1340 1340 1107; Mul 1107 637 1481;
  Mul 1049 215 1049; Mul 1302 232 1448; Add 1049 1049 1302; Mul 1191 216 1191; Mul 1302 298 1676;
  Sub 1191 1191 1302; Sub 1049 1049 1191; Add 1148 1148 1049; Mul 1148 676 1148; Add 1107 1107 1148;
  Sub 1340 1340 1107; Add 1579 1579 1340; Sub 1632 1632 1482; Add 1579 1579 1632; Mul 1579 2 1579;
  Mul 1632 826 1659; Add 1579 1579 1632; Add 1463 1463 1579; Mul 1579 674 1562; Mul 1632 697 1440;
  Sub 1579 1579 1632; Mul 1632 695 1179; Mul 1482 680 1471; Add 1632 1632 1482; Mul 1482 647 1481;
  Mul 1340 216 1119; Mul 1107 411 1676; Sub 1340 1340 1107; Mul 1107 215 1599].
Definition casadi_f0_546 : list instruction := [
  Mul 1148 302 1448; Add 1107 1107 1148; Sub 1340 1340 1107; Add 1241 1241 1340; Mul 1340 676 1241;
  Add 1482 1482 1340; Sub 1632 1632 1482; Add 1579 1579 1632; Sub 1575 1575 1667; Add 1579 1579 1575;
  Mul 1579 3 1579; Mul 1575 347 1170; Add 1579 1579 1575; Add 1463 1463 1579; Mul 1579 674 1316;
  Mul 1575 811 1440; Sub 1579 1579 1575; Mul 1575 813 1179; Mul 1667 680 1133; Add 1575 1575 1667;
  Mul 1667 802 1481; Mul 1632 310 1250; Mul 1482 252 1278; Add 1632 1632 1482; Mul 1482 327 1466;
  Mul 1340 339 1215; Add 1482 1482 1340; Mul 1651 318 1651; Mul 1340 701 1062; Add 1107 1651 1340;
  Add 1482 1482 1107; Add 1632 1632 1482; Sub 1548 1548 1632; Mul 1632 676 1548; Add 1667 1667 1632;
  Sub 1575 1575 1667; Add 1579 1579 1575; Sub 1352 1352 1645; Add 1579 1579 1352; Mul 1579 4 1579;
  Mul 1352 698 1284; Add 1579 1579 1352; Add 1463 1463 1579; Mul 1579 674 1110; Mul 1352 820 1440;
  Sub 1579 1579 1352; Mul 1352 822 1179; Mul 1645 680 1256; Add 1352 1352 1645; Mul 1645 788 1481;
  Mul 1575 358 1644; Mul 1667 234 1492; Add 1575 1575 1667; Mul 1667 372 1605; Mul 1632 355 1052;
  Add 1667 1667 1632; Mul 1582 369 1582; Mul 1632 708 1180; Add 1482 1582 1632; Add 1667 1667 1482;
  Add 1575 1575 1667; Sub 1288 1288 1575; Mul 1575 676 1288; Add 1645 1645 1575; Sub 1352 1352 1645;
  Add 1579 1579 1352; Sub 1247 1247 1140; Add 1579 1579 1247; Mul 1579 5 1579; Mul 1247 809 1592;
  Add 1579 1579 1247; Add 1463 1463 1579; Sub 1269 1269 1463; Mul 1463 778 1269; Add 1245 1245 1463;
  Sub 1514 1514 1245; Div 1245 1028 92; Mul 1463 1516 1265; Sub 1245 1245 1463; Mul 1463 775 1245;
  Add 1201 1201 1129; Mul 1129 658 1493; Mul 1465 718 1465; Add 1129 1129 1465; Sub 1201 1201 1129;
  Mul 1129 635 1557; Mul 1088 714 1088; Add 1129 1129 1088; Sub 1201 1201 1129; Mul 1266 216 1266;
  Mul 1129 90 1676; Sub 1266 1266 1129; Mul 1129 566 1448; Mul 1200 215 1200; Add 1129 1129 1200;
  Sub 1266 1266 1129; Add 1201 1201 1266; Mul 1201 0 1201; Mul 1266 818 1594; Add 1201 1201 1266;
  Mul 1266 216 1127; Mul 1129 519 1676; Sub 1266 1266 1129; Sub 1266 1266 1557; Mul 1266 156 1266;
  Mul 1129 545 1266; Mul 1200 684 1392; Add 1129 1129 1200; Mul 1200 216 1232; Mul 1088 494 1676;
  Sub 1200 1200 1088; Mul 1088 215 1617; Mul 1465 497 1448; Add 1088 1088 1465; Add 1200 1200 1088;
  Sub 1200 1449 1200; Mul 1200 156 1200; Mul 1088 504 1200; Mul 1465 660 1237; Add 1088 1088 1465;
  Mul 1465 215 1127; Mul 1579 519 1448; Add 1465 1465 1579; Sub 1465 1465 1493; Mul 1465 156 1465;
  Mul 1579 541 1465; Mul 1247 827 1653; Add 1579 1579 1247; Sub 1088 1088 1579; Add 1129 1129 1088;
  Mul 1611 216 1611; Mul 1088 530 1676; Sub 1611 1611 1088; Mul 1280 215 1280; Mul 1088 513 1448;
  Add 1280 1280 1088; Sub 1611 1611 1280; Mul 1280 827 1232; Mul 1088 494 1465; Add 1280 1280 1088;
  Mul 1088 684 1617; Mul 1579 497 1266; Add 1088 1088 1579; Sub 1280 1280 1088; Add 1611 1611 1280;
  Mul 1280 508 1611; Mul 1088 656 1658; Add 1280 1280 1088; Mul 1458 216 1458].
Definition casadi_f0_547 : list instruction := [
  Mul 1088 481 1676; Sub 1458 1458 1088; Mul 1088 215 1055; Mul 1579 782 1448; Add 1088 1088 1579;
  Sub 1458 1458 1088; Mul 1088 684 1127; Mul 1579 519 1266; Add 1088 1088 1579; Mul 1232 660 1232;
  Mul 1579 494 1200; Add 1232 1232 1579; Sub 1088 1088 1232; Add 1458 1458 1088; Mul 1088 536 1458;
  Mul 1232 829 1447; Add 1088 1088 1232; Sub 1280 1280 1088; Mul 1055 216 1055; Mul 1088 782 1676;
  Sub 1055 1055 1088; Mul 1603 215 1603; Mul 1088 483 1448; Add 1603 1603 1088; Sub 1055 1055 1603;
  Mul 1617 660 1617; Mul 1603 497 1200; Add 1617 1617 1603; Mul 1127 827 1127; Mul 1603 519 1465;
  Add 1127 1127 1603; Sub 1617 1617 1127; Add 1055 1055 1617; Mul 1617 526 1055; Mul 1127 830 1365;
  Add 1617 1617 1127; Sub 1280 1280 1617; Add 1129 1129 1280; Mul 1280 411 1449; Mul 1119 716 1119;
  Add 1280 1280 1119; Add 1074 1074 1086; Sub 1280 1280 1074; Mul 1074 795 1557; Mul 1455 714 1455;
  Add 1074 1074 1455; Sub 1280 1280 1074; Mul 1074 416 1448; Mul 1394 215 1394; Add 1074 1074 1394;
  Sub 1303 1303 1074; Add 1280 1280 1303; Mul 1280 216 1280; Mul 1303 828 1676; Sub 1280 1280 1303;
  Mul 1303 302 1449; Mul 1599 716 1599; Add 1303 1303 1599; Mul 1599 448 1493; Mul 1633 718 1633;
  Add 1599 1599 1633; Sub 1303 1303 1599; Add 1544 1544 1090; Sub 1303 1303 1544; Mul 1164 216 1164;
  Mul 1544 414 1676; Sub 1164 1164 1544; Add 1096 1096 1454; Sub 1164 1164 1096; Add 1303 1303 1164;
  Mul 1303 215 1303; Mul 1164 832 1448; Add 1303 1303 1164; Sub 1164 1280 1303; Mul 1345 216 1345;
  Mul 1096 797 1676; Sub 1345 1345 1096; Add 1330 1330 1464; Sub 1345 1345 1330; Mul 1330 540 1345;
  Mul 1464 835 1549; Sub 1330 1330 1464; Mul 1464 415 1448; Mul 1427 215 1427; Add 1464 1464 1427;
  Sub 1583 1583 1464; Mul 1464 544 1583; Mul 1427 837 1685; Add 1464 1464 1427; Add 1330 1330 1464;
  Sub 1164 1164 1330; Add 1129 1129 1164; Mul 1129 1 1129; Mul 1164 632 1292; Add 1129 1129 1164;
  Add 1201 1201 1129; Mul 1266 678 1266; Mul 1129 684 1690; Add 1266 1266 1129; Mul 1465 673 1465;
  Mul 1129 827 1321; Add 1465 1465 1129; Mul 1200 799 1200; Mul 1129 660 1224; Add 1200 1200 1129;
  Add 1465 1465 1200; Add 1266 1266 1465; Mul 1055 602 1055; Mul 1465 830 1663; Add 1055 1055 1465;
  Mul 1458 670 1458; Mul 1465 829 1469; Add 1458 1458 1465; Mul 1611 671 1611; Mul 1465 656 1552;
  Add 1611 1611 1465; Sub 1458 1458 1611; Add 1055 1055 1458; Add 1266 1266 1055; Mul 1345 674 1345;
  Mul 1055 835 1440; Sub 1345 1345 1055; Mul 1583 680 1583; Mul 1055 837 1179; Add 1583 1583 1055;
  Mul 1409 216 1409; Mul 1055 403 1676; Sub 1409 1409 1055; Mul 1055 293 1448; Mul 1406 215 1406;
  Add 1055 1055 1406; Sub 1409 1409 1055; Mul 1409 676 1409; Mul 1055 839 1481; Add 1409 1409 1055;
  Sub 1583 1583 1409; Add 1345 1345 1583; Sub 1303 1303 1280; Add 1345 1345 1303; Add 1266 1266 1345;
  Mul 1266 2 1266; Mul 1345 834 1659; Add 1266 1266 1345; Add 1201 1201 1266; Mul 1266 647 1449;
  Mul 1241 716 1241; Add 1266 1266 1241; Mul 1241 695 1493; Mul 1471 718 1471].
Definition casadi_f0_548 : list instruction := [
  Add 1241 1241 1471; Sub 1266 1266 1241; Mul 1241 697 1557; Mul 1562 714 1562; Add 1241 1241 1562;
  Sub 1266 1266 1241; Add 1266 1266 1506; Mul 1266 3 1266; Mul 1506 836 1170; Add 1266 1266 1506;
  Add 1201 1201 1266; Mul 1266 802 1449; Mul 1506 716 1548; Add 1266 1266 1506; Mul 1506 813 1493;
  Mul 1241 718 1133; Add 1506 1506 1241; Sub 1266 1266 1506; Mul 1506 811 1557; Mul 1241 714 1316;
  Add 1506 1506 1241; Sub 1266 1266 1506; Add 1266 1266 1183; Mul 1266 4 1266; Mul 1183 702 1284;
  Add 1266 1266 1183; Add 1201 1201 1266; Mul 1266 788 1449; Mul 1183 716 1288; Add 1266 1266 1183;
  Mul 1183 822 1493; Mul 1506 718 1256; Add 1183 1183 1506; Sub 1266 1266 1183; Mul 1183 820 1557;
  Mul 1506 714 1110; Add 1183 1183 1506; Sub 1266 1266 1183; Add 1266 1266 1139; Mul 1266 5 1266;
  Mul 1139 810 1592; Add 1266 1266 1139; Add 1201 1201 1266; Add 1201 1201 1159; Mul 1159 769 1201;
  Sub 1463 1463 1159; Add 1514 1514 1463; Div 1463 1020 92; Mul 1159 1637 1265; Sub 1463 1463 1159;
  Mul 1159 815 1463; Mul 1266 640 1400; Mul 1175 725 1175; Add 1266 1266 1175; Mul 1175 662 1270;
  Mul 1680 731 1680; Add 1175 1175 1680; Add 1401 1401 1350; Add 1175 1175 1401; Add 1266 1266 1175;
  Mul 1175 580 1278; Mul 1167 310 1167; Add 1175 1175 1167; Mul 1167 59 1215; Mul 1362 327 1362;
  Add 1167 1167 1362; Add 1695 1695 1312; Add 1167 1167 1695; Add 1175 1175 1167; Sub 1266 1266 1175;
  Mul 1266 0 1266; Mul 1175 819 1594; Add 1266 1266 1175; Mul 1175 327 1252; Mul 1167 515 1215;
  Add 1175 1175 1167; Mul 1167 318 1147; Mul 1695 489 1062; Add 1167 1167 1695; Sub 1175 1175 1167;
  Sub 1175 1400 1175; Mul 1175 723 1175; Mul 1167 545 1175; Mul 1695 831 1392; Add 1167 1167 1695;
  Mul 1695 310 1147; Mul 1312 489 1278; Add 1695 1695 1312; Mul 1312 327 1190; Mul 1362 486 1215;
  Add 1312 1312 1362; Sub 1695 1695 1312; Sub 1695 1588 1695; Mul 1695 723 1695; Mul 1312 504 1695;
  Mul 1362 840 1237; Add 1312 1312 1362; Mul 1362 318 1190; Mul 1401 486 1062; Add 1362 1362 1401;
  Mul 1401 310 1252; Mul 1350 515 1278; Add 1401 1401 1350; Sub 1362 1362 1401; Sub 1362 1270 1362;
  Mul 1362 723 1362; Mul 1401 541 1362; Mul 1350 842 1653; Add 1401 1401 1350; Sub 1312 1312 1401;
  Add 1167 1167 1312; Mul 1312 842 1190; Mul 1401 486 1362; Add 1312 1312 1401; Mul 1401 831 1147;
  Mul 1350 489 1175; Add 1401 1401 1350; Sub 1312 1312 1401; Mul 1401 310 1700; Mul 1350 510 1278;
  Add 1401 1401 1350; Mul 1350 327 1228; Mul 1680 528 1215; Add 1350 1350 1680; Add 1401 1401 1350;
  Mul 1607 318 1607; Mul 1350 479 1062; Add 1607 1607 1350; Add 1401 1401 1607; Sub 1312 1312 1401;
  Mul 1401 508 1312; Mul 1607 841 1658; Add 1401 1401 1607; Mul 1607 831 1252; Mul 1350 515 1175;
  Add 1607 1607 1350; Mul 1190 840 1190; Mul 1350 486 1695; Add 1190 1190 1350; Sub 1607 1607 1190;
  Mul 1190 310 1650; Mul 1350 606 1278; Add 1190 1190 1350; Mul 1105 327 1105; Mul 1350 786 1215;
  Add 1105 1105 1350; Add 1190 1190 1105; Mul 1228 318 1228; Mul 1105 528 1062].
Definition casadi_f0_549 : list instruction := [
  Add 1228 1228 1105; Add 1190 1190 1228; Sub 1607 1607 1190; Mul 1190 536 1607; Mul 1228 844 1447;
  Add 1190 1190 1228; Sub 1401 1401 1190; Mul 1147 840 1147; Mul 1190 489 1695; Add 1147 1147 1190;
  Mul 1252 842 1252; Mul 1190 515 1362; Add 1252 1252 1190; Sub 1147 1147 1252; Mul 1546 310 1546;
  Mul 1252 705 1278; Add 1546 1546 1252; Mul 1650 327 1650; Mul 1252 606 1215; Add 1650 1650 1252;
  Add 1546 1546 1650; Mul 1700 318 1700; Mul 1650 510 1062; Add 1700 1700 1650; Add 1546 1546 1700;
  Sub 1147 1147 1546; Mul 1546 526 1147; Mul 1700 845 1365; Add 1546 1546 1700; Sub 1401 1401 1546;
  Add 1167 1167 1401; Add 1515 1515 1535; Mul 1535 800 1215; Mul 1655 327 1655; Add 1535 1535 1655;
  Mul 1655 643 1062; Mul 1391 318 1391; Add 1655 1655 1391; Add 1535 1535 1655; Add 1515 1515 1535;
  Mul 1535 540 1515; Mul 1655 843 1549; Sub 1535 1535 1655; Mul 1655 465 1278; Mul 1527 310 1527;
  Add 1655 1655 1527; Add 1556 1556 1510; Mul 1510 665 1062; Mul 1297 318 1297; Add 1510 1510 1297;
  Add 1556 1556 1510; Add 1655 1655 1556; Mul 1556 544 1655; Mul 1510 847 1685; Add 1556 1556 1510;
  Add 1535 1535 1556; Mul 1556 798 1400; Mul 1103 725 1103; Add 1556 1556 1103; Add 1238 1238 1196;
  Mul 1196 339 1588; Mul 1466 727 1466; Add 1196 1196 1466; Add 1238 1238 1196; Add 1556 1556 1238;
  Mul 1238 407 1278; Mul 1503 310 1503; Add 1238 1238 1503; Add 1432 1432 1368; Mul 1368 595 1062;
  Mul 1310 318 1310; Add 1368 1368 1310; Add 1432 1432 1368; Add 1238 1238 1432; Sub 1556 1556 1238;
  Mul 1556 216 1556; Mul 1238 848 1676; Sub 1556 1556 1238; Add 1438 1438 1156; Mul 1156 464 1270;
  Mul 1037 731 1037; Add 1156 1156 1037; Mul 1037 252 1588; Mul 1250 727 1250; Add 1037 1037 1250;
  Add 1156 1156 1037; Add 1438 1438 1156; Add 1384 1384 1586; Mul 1586 361 1215; Mul 1194 327 1194;
  Add 1586 1586 1194; Mul 1194 620 1062; Mul 1363 318 1363; Add 1194 1194 1363; Add 1586 1586 1194;
  Add 1384 1384 1586; Sub 1438 1438 1384; Mul 1438 215 1438; Mul 1384 850 1448; Add 1438 1438 1384;
  Sub 1384 1556 1438; Add 1535 1535 1384; Add 1167 1167 1535; Mul 1167 1 1167; Mul 1535 838 1292;
  Add 1167 1167 1535; Add 1266 1266 1167; Mul 1167 678 1175; Mul 1535 831 1690; Add 1167 1167 1535;
  Mul 1535 673 1362; Mul 1586 842 1321; Add 1535 1535 1586; Mul 1586 799 1695; Mul 1194 840 1224;
  Add 1586 1586 1194; Add 1535 1535 1586; Add 1167 1167 1535; Mul 1535 602 1147; Mul 1586 845 1663;
  Add 1535 1535 1586; Mul 1586 670 1607; Mul 1194 844 1469; Add 1586 1586 1194; Mul 1194 671 1312;
  Mul 1363 841 1552; Add 1194 1194 1363; Sub 1586 1586 1194; Add 1535 1535 1586; Add 1167 1167 1535;
  Mul 1535 785 1278; Mul 1287 310 1287; Add 1535 1535 1287; Mul 1287 306 1215; Mul 1571 327 1571;
  Add 1287 1287 1571; Add 1340 1340 1651; Add 1287 1287 1340; Add 1535 1535 1287; Mul 1287 676 1535;
  Mul 1340 853 1481; Add 1287 1287 1340; Mul 1340 680 1655; Mul 1651 847 1179; Add 1340 1340 1651;
  Sub 1287 1287 1340; Mul 1340 674 1515; Mul 1651 843 1440; Sub 1340 1340 1651].
Definition casadi_f0_550 : list instruction := [
  Sub 1287 1287 1340; Sub 1438 1438 1556; Add 1287 1287 1438; Add 1167 1167 1287; Mul 1167 2 1167;
  Mul 1287 846 1659; Add 1167 1167 1287; Add 1266 1266 1167; Mul 1175 717 1175; Mul 1167 831 1568;
  Add 1175 1175 1167; Mul 1695 787 1695; Mul 1167 840 1662; Add 1695 1695 1167; Mul 1362 713 1362;
  Mul 1167 842 1550; Add 1362 1362 1167; Sub 1695 1695 1362; Add 1175 1175 1695; Mul 1312 677 1312;
  Mul 1695 841 1627; Add 1312 1312 1695; Mul 1607 712 1607; Mul 1695 844 1386; Add 1607 1607 1695;
  Sub 1312 1312 1607; Mul 1147 706 1147; Mul 1607 845 1099; Add 1147 1147 1607; Sub 1312 1312 1147;
  Add 1175 1175 1312; Mul 1515 714 1515; Mul 1312 843 1557; Add 1515 1515 1312; Mul 1655 718 1655;
  Mul 1312 847 1493; Add 1655 1655 1312; Mul 1535 716 1535; Mul 1312 853 1449; Add 1535 1535 1312;
  Sub 1655 1655 1535; Add 1515 1515 1655; Add 1515 1515 1384; Add 1175 1175 1515; Mul 1175 3 1175;
  Mul 1515 854 1170; Add 1175 1175 1515; Add 1266 1266 1175; Mul 1175 811 1400; Mul 1316 725 1316;
  Add 1175 1175 1316; Mul 1316 813 1270; Mul 1133 731 1133; Add 1316 1316 1133; Mul 1133 802 1588;
  Mul 1548 727 1548; Add 1133 1133 1548; Add 1316 1316 1133; Add 1175 1175 1316; Mul 1316 807 1278;
  Mul 1017 310 1017; Add 1316 1316 1017; Mul 1017 690 1215; Mul 1219 327 1219; Add 1017 1017 1219;
  Mul 1219 720 1062; Mul 1411 318 1411; Add 1219 1219 1411; Add 1017 1017 1219; Add 1316 1316 1017;
  Sub 1175 1175 1316; Mul 1175 4 1175; Mul 1316 851 1284; Add 1175 1175 1316; Add 1266 1266 1175;
  Mul 1175 820 1400; Mul 1316 725 1110; Add 1175 1175 1316; Mul 1316 822 1270; Mul 1017 731 1256;
  Add 1316 1316 1017; Mul 1017 788 1588; Mul 1219 727 1288; Add 1017 1017 1219; Add 1316 1316 1017;
  Add 1175 1175 1316; Mul 1316 817 1278; Mul 1017 310 1209; Add 1316 1316 1017; Mul 1017 814 1215;
  Mul 1219 327 1389; Add 1017 1017 1219; Mul 1219 732 1062; Mul 1411 318 1285; Add 1219 1219 1411;
  Add 1017 1017 1219; Add 1316 1316 1017; Sub 1175 1175 1316; Mul 1175 5 1175; Mul 1316 852 1592;
  Add 1175 1175 1316; Add 1266 1266 1175; Sub 1593 1593 1266; Mul 1266 761 1593; Add 1159 1159 1266;
  Add 1514 1514 1159; Div 1159 1385 92; Mul 1266 1619 1265; Sub 1159 1159 1266; Mul 1266 833 1159;
  Mul 1175 645 1309; Mul 1570 736 1570; Add 1175 1175 1570; Mul 1570 666 1434; Mul 1398 741 1398;
  Add 1570 1570 1398; Add 1150 1150 1205; Add 1570 1570 1150; Add 1175 1175 1570; Mul 1570 593 1492;
  Mul 1567 358 1567; Add 1570 1570 1567; Mul 1567 36 1052; Mul 1660 372 1660; Add 1567 1567 1660;
  Add 1610 1610 1648; Add 1567 1567 1610; Add 1570 1570 1567; Sub 1175 1175 1570; Mul 1570 0 1175;
  Mul 1594 849 1594; Add 1570 1570 1594; Mul 1594 372 1181; Mul 1567 438 1052; Add 1594 1594 1567;
  Mul 1567 369 1243; Mul 1610 434 1180; Add 1567 1567 1610; Sub 1594 1594 1567; Sub 1594 1309 1594;
  Mul 1594 430 1594; Mul 1567 545 1594; Mul 1392 856 1392; Add 1567 1567 1392; Mul 1392 358 1243;
  Mul 1610 434 1492; Add 1392 1392 1610; Mul 1610 372 1609; Mul 1648 445 1052].
Definition casadi_f0_551 : list instruction := [
  Add 1610 1610 1648; Sub 1392 1392 1610; Sub 1392 1347 1392; Mul 1392 430 1392; Mul 1610 504 1392;
  Mul 1237 858 1237; Add 1610 1610 1237; Mul 1237 369 1609; Mul 1648 445 1180; Add 1237 1237 1648;
  Mul 1648 358 1181; Mul 1660 438 1492; Add 1648 1648 1660; Sub 1237 1237 1648; Sub 1237 1434 1237;
  Mul 1237 430 1237; Mul 1648 541 1237; Mul 1653 860 1653; Add 1648 1648 1653; Sub 1610 1610 1648;
  Add 1567 1567 1610; Mul 1610 860 1609; Mul 1648 445 1237; Add 1610 1610 1648; Mul 1648 856 1243;
  Mul 1653 434 1594; Add 1648 1648 1653; Sub 1610 1610 1648; Mul 1648 358 1034; Mul 1653 443 1492;
  Add 1648 1648 1653; Mul 1653 372 1507; Mul 1660 426 1052; Add 1653 1653 1660; Add 1648 1648 1653;
  Mul 1082 369 1082; Mul 1653 478 1180; Add 1082 1082 1653; Add 1648 1648 1082; Sub 1610 1610 1648;
  Mul 1648 508 1610; Mul 1658 859 1658; Add 1648 1648 1658; Mul 1658 856 1181; Mul 1082 438 1594;
  Add 1658 1658 1082; Mul 1609 858 1609; Mul 1082 445 1392; Add 1609 1609 1082; Sub 1658 1658 1609;
  Mul 1609 358 1473; Mul 1082 609 1492; Add 1609 1609 1082; Mul 1320 372 1320; Mul 1082 604 1052;
  Add 1320 1320 1082; Add 1609 1609 1320; Mul 1507 369 1507; Mul 1320 426 1180; Add 1507 1507 1320;
  Add 1609 1609 1507; Sub 1658 1658 1609; Mul 1609 536 1658; Mul 1447 862 1447; Add 1609 1609 1447;
  Sub 1648 1648 1609; Mul 1243 858 1243; Mul 1609 434 1392; Add 1243 1243 1609; Mul 1181 860 1181;
  Mul 1609 438 1237; Add 1181 1181 1609; Sub 1243 1243 1181; Mul 1181 13 1492; Mul 1203 358 1203;
  Sub 1181 1181 1203; Mul 1473 372 1473; Mul 1203 609 1052; Add 1473 1473 1203; Add 1181 1181 1473;
  Mul 1034 369 1034; Mul 1473 443 1180; Add 1034 1034 1473; Add 1181 1181 1034; Sub 1243 1243 1181;
  Mul 1181 526 1243; Mul 1365 863 1365; Add 1181 1181 1365; Sub 1648 1648 1181; Add 1567 1567 1648;
  Add 1079 1079 1574; Mul 1574 803 1052; Mul 1042 372 1042; Add 1574 1574 1042; Mul 1042 648 1180;
  Mul 1664 369 1664; Add 1042 1042 1664; Add 1574 1574 1042; Add 1079 1079 1574; Mul 1574 540 1079;
  Mul 1549 861 1549; Sub 1574 1574 1549; Mul 1549 394 1492; Mul 1460 358 1460; Add 1549 1549 1460;
  Add 1467 1467 1289; Mul 1289 669 1180; Mul 1547 369 1547; Add 1289 1289 1547; Add 1467 1467 1289;
  Add 1549 1549 1467; Mul 1467 544 1549; Mul 1685 865 1685; Add 1467 1467 1685; Add 1574 1574 1467;
  Mul 1467 801 1309; Mul 1628 736 1628; Add 1467 1467 1628; Add 1060 1060 1453; Mul 1453 355 1347;
  Mul 1605 738 1605; Add 1453 1453 1605; Add 1060 1060 1453; Add 1467 1467 1060; Mul 1060 359 1492;
  Mul 1022 358 1022; Add 1060 1060 1022; Add 1412 1412 1343; Mul 1343 608 1180; Mul 1151 369 1151;
  Add 1343 1343 1151; Add 1412 1412 1343; Add 1060 1060 1412; Sub 1467 1467 1060; Mul 1060 216 1467;
  Mul 1676 866 1676; Sub 1060 1060 1676; Add 1595 1595 1258; Mul 1258 457 1434; Mul 1380 741 1380;
  Add 1258 1258 1380; Mul 1380 234 1347; Mul 1644 738 1644; Add 1380 1380 1644; Add 1258 1258 1380;
  Add 1595 1595 1258; Add 1533 1533 1689; Mul 1689 352 1052; Mul 1688 372 1688].
Definition casadi_f0_552 : list instruction := [
  Add 1689 1689 1688; Mul 1688 622 1180; Mul 1602 369 1602; Add 1688 1688 1602; Add 1689 1689 1688;
  Add 1533 1533 1689; Sub 1595 1595 1533; Mul 1533 215 1595; Mul 1448 868 1448; Add 1533 1533 1448;
  Sub 1448 1060 1533; Add 1574 1574 1448; Add 1567 1567 1574; Mul 1567 1 1567; Mul 1292 857 1292;
  Add 1567 1567 1292; Add 1570 1570 1567; Mul 1567 678 1594; Mul 1690 856 1690; Add 1567 1567 1690;
  Mul 1690 673 1237; Mul 1321 860 1321; Add 1690 1690 1321; Mul 1321 799 1392; Mul 1224 858 1224;
  Add 1321 1321 1224; Add 1690 1690 1321; Add 1567 1567 1690; Mul 1690 602 1243; Mul 1663 863 1663;
  Add 1690 1690 1663; Mul 1663 670 1658; Mul 1469 862 1469; Add 1663 1663 1469; Mul 1469 671 1610;
  Mul 1552 859 1552; Add 1469 1469 1552; Sub 1663 1663 1469; Add 1690 1690 1663; Add 1567 1567 1690;
  Mul 1690 245 1492; Mul 1137 358 1137; Add 1690 1690 1137; Mul 1137 356 1052; Mul 1113 372 1113;
  Add 1137 1137 1113; Add 1632 1632 1582; Add 1137 1137 1632; Add 1690 1690 1137; Mul 1137 676 1690;
  Mul 1481 871 1481; Add 1137 1137 1481; Mul 1481 680 1549; Mul 1179 865 1179; Add 1481 1481 1179;
  Sub 1137 1137 1481; Mul 1481 674 1079; Mul 1440 861 1440; Sub 1481 1481 1440; Sub 1137 1137 1481;
  Sub 1533 1533 1060; Add 1137 1137 1533; Add 1567 1567 1137; Mul 1567 2 1567; Mul 1659 864 1659;
  Add 1567 1567 1659; Add 1570 1570 1567; Mul 1567 717 1594; Mul 1568 856 1568; Add 1567 1567 1568;
  Mul 1568 787 1392; Mul 1662 858 1662; Add 1568 1568 1662; Mul 1662 713 1237; Mul 1550 860 1550;
  Add 1662 1662 1550; Sub 1568 1568 1662; Add 1567 1567 1568; Mul 1568 677 1610; Mul 1627 859 1627;
  Add 1568 1568 1627; Mul 1627 712 1658; Mul 1386 862 1386; Add 1627 1627 1386; Sub 1568 1568 1627;
  Mul 1627 706 1243; Mul 1099 863 1099; Add 1627 1627 1099; Sub 1568 1568 1627; Add 1567 1567 1568;
  Mul 1568 714 1079; Mul 1557 861 1557; Add 1568 1568 1557; Mul 1557 718 1549; Mul 1493 865 1493;
  Add 1557 1557 1493; Mul 1493 716 1690; Mul 1449 871 1449; Add 1493 1493 1449; Sub 1557 1557 1493;
  Add 1568 1568 1557; Add 1568 1568 1448; Add 1567 1567 1568; Mul 1567 3 1567; Mul 1170 872 1170;
  Add 1567 1567 1170; Add 1570 1570 1567; Mul 1594 729 1594; Mul 1692 856 1692; Add 1594 1594 1692;
  Mul 1237 724 1237; Mul 1218 860 1218; Add 1237 1237 1218; Mul 1392 688 1392; Mul 1169 858 1169;
  Add 1392 1392 1169; Add 1237 1237 1392; Add 1594 1594 1237; Mul 1243 715 1243; Mul 1051 863 1051;
  Add 1243 1243 1051; Mul 1658 721 1658; Mul 1652 862 1652; Add 1658 1658 1652; Mul 1610 722 1610;
  Mul 1541 859 1541; Add 1610 1610 1541; Add 1658 1658 1610; Add 1243 1243 1658; Add 1594 1594 1243;
  Mul 1079 725 1079; Mul 1400 861 1400; Add 1079 1079 1400; Mul 1549 731 1549; Mul 1270 865 1270;
  Add 1549 1549 1270; Mul 1690 727 1690; Mul 1588 871 1588; Add 1690 1690 1588; Add 1549 1549 1690;
  Add 1079 1079 1549; Mul 1595 310 1595; Mul 1278 868 1278; Add 1595 1595 1278; Mul 1467 327 1467;
  Mul 1215 866 1215; Add 1467 1467 1215; Mul 1175 318 1175; Mul 1062 849 1062].
Definition casadi_f0_553 : list instruction := [
  Add 1175 1175 1062; Add 1467 1467 1175; Add 1595 1595 1467; Add 1079 1079 1595; Sub 1594 1594 1079;
  Mul 1594 4 1594; Mul 1284 869 1284; Add 1594 1594 1284; Add 1570 1570 1594; Mul 1309 820 1309;
  Mul 1110 736 1110; Add 1309 1309 1110; Mul 1434 822 1434; Mul 1256 741 1256; Add 1434 1434 1256;
  Mul 1347 788 1347; Mul 1288 738 1288; Add 1347 1347 1288; Add 1434 1434 1347; Add 1309 1309 1434;
  Mul 1492 817 1492; Mul 1209 358 1209; Add 1492 1492 1209; Mul 1052 814 1052; Mul 1389 372 1389;
  Add 1052 1052 1389; Mul 1180 732 1180; Mul 1285 369 1285; Add 1180 1180 1285; Add 1052 1052 1180;
  Add 1492 1492 1052; Sub 1309 1309 1492; Mul 1309 5 1309; Mul 1592 870 1592; Add 1309 1309 1592;
  Add 1570 1570 1309; Sub 1202 1202 1570; Mul 1570 754 1202; Add 1266 1266 1570; Add 1514 1514 1266;
  Mul 1266 210 1385; Mul 1570 200 1498; Add 1266 1266 1570; Mul 1508 19 1508; Mul 1570 196 1531;
  Sub 1508 1508 1570; Mul 1570 189 1631; Mul 1612 35 1612; Sub 1570 1570 1612; Sub 1508 1508 1570;
  Mul 1435 55 1435; Mul 1443 62 1443; Add 1435 1435 1443; Add 1508 1508 1435; Mul 1490 86 1490;
  Mul 1625 91 1625; Add 1490 1490 1625; Add 1490 1508 1490; Mul 1026 102 1026; Sub 1026 1490 1026;
  Mul 1625 777 1026; Mul 1435 209 1171; Add 1625 1625 1435; Add 1266 1266 1625; Mul 1625 778 1490;
  Mul 1435 867 1422; Add 1625 1625 1435; Add 1266 1266 1625; Mul 1625 769 1508; Mul 1435 855 1245;
  Add 1625 1625 1435; Add 1266 1266 1625; Mul 1625 761 1483; Mul 1435 201 1463; Add 1625 1625 1435;
  Sub 1266 1266 1625; Mul 1625 873 1159; Add 1266 1266 1625; Mul 1625 1006 1266; Mul 1435 210 1266;
  Mul 1443 756 1498; Add 1435 1435 1443; Sub 1385 1385 1435; Mul 1435 881 1385; Mul 1443 210 1291;
  Mul 1570 143 1498; Add 1443 1443 1570; Sub 1430 1430 1578; Sub 1100 1100 1591; Mul 1100 37 1100;
  Add 1430 1430 1100; Sub 1092 1092 1669; Mul 1092 80 1092; Add 1092 1430 1092; Sub 1600 1600 1561;
  Mul 1600 100 1600; Add 1600 1092 1600; Mul 1136 1064 1136; Mul 1253 1061 1253; Add 1136 1136 1253;
  Mul 1136 141 1136; Add 1600 1600 1136; Mul 1136 777 1600; Mul 1253 876 1171; Add 1136 1136 1253;
  Add 1443 1443 1136; Mul 1322 151 1322; Mul 1382 103 1382; Add 1322 1322 1382; Mul 1035 148 1035;
  Mul 1521 105 1521; Add 1035 1035 1521; Sub 1322 1322 1035; Sub 1322 1322 1092; Mul 1361 102 1361;
  Sub 1361 1322 1361; Mul 1092 778 1361; Mul 1035 153 1422; Add 1092 1092 1035; Sub 1443 1443 1092;
  Mul 1217 1057 1217; Mul 1198 1065 1198; Sub 1217 1217 1198; Mul 1217 156 1217; Add 1430 1430 1217;
  Mul 1298 86 1298; Mul 1636 91 1636; Sub 1298 1298 1636; Add 1298 1430 1298; Mul 1290 102 1290;
  Sub 1290 1298 1290; Mul 1636 769 1290; Mul 1217 171 1245; Add 1636 1636 1217; Add 1443 1443 1636;
  Mul 1631 180 1631; Mul 1661 35 1661; Add 1631 1631 1661; Mul 1259 19 1259; Mul 1531 182 1531;
  Sub 1259 1259 1531; Sub 1631 1631 1259; Mul 1408 55 1408; Add 1631 1631 1408; Mul 1485 86 1485;
  Mul 1355 91 1355; Add 1485 1485 1355; Add 1485 1631 1485; Mul 1635 102 1635].
Definition casadi_f0_554 : list instruction := [
  Sub 1635 1485 1635; Mul 1355 761 1635; Mul 1408 188 1463; Add 1355 1355 1408; Add 1443 1443 1355;
  Mul 1355 754 1026; Mul 1408 209 1159; Add 1355 1355 1408; Add 1443 1443 1355; Mul 1355 210 1443;
  Mul 1408 875 1498; Add 1355 1355 1408; Sub 1291 1291 1355; Div 1355 1291 65; Mul 1291 89 1291;
  Mul 1408 777 1443; Mul 1259 875 1171; Add 1408 1408 1259; Sub 1600 1600 1408; Mul 1408 58 1600;
  Add 1291 1291 1408; Mul 1408 778 1443; Mul 1259 875 1422; Add 1408 1408 1259; Add 1408 1361 1408;
  Mul 1259 45 1408; Add 1291 1291 1259; Mul 1259 769 1443; Mul 1531 875 1245; Add 1259 1259 1531;
  Sub 1259 1290 1259; Mul 1531 22 1259; Add 1291 1291 1531; Mul 1531 761 1443; Mul 1661 875 1463;
  Add 1531 1531 1661; Sub 1531 1635 1531; Mul 1661 879 1531; Add 1291 1291 1661; Mul 1661 754 1443;
  Mul 1636 875 1159; Add 1661 1661 1636; Sub 1661 1026 1661; Mul 1636 880 1661; Add 1291 1291 1636;
  Div 1291 1291 1045; Mul 1636 1078 1291; Sub 1355 1355 1636; Mul 1636 874 1355; Add 1435 1435 1636;
  Mul 1636 777 1266; Mul 1217 756 1171; Add 1636 1636 1217; Sub 1026 1026 1636; Mul 1636 884 1026;
  Div 1600 1600 65; Mul 1217 1029 1291; Sub 1600 1600 1217; Mul 1217 883 1600; Add 1636 1636 1217;
  Add 1435 1435 1636; Mul 1636 778 1266; Mul 1217 756 1422; Add 1636 1636 1217; Sub 1636 1636 1490;
  Mul 1217 886 1636; Div 1408 1408 65; Mul 1198 1063 1291; Sub 1408 1408 1198; Mul 1198 885 1408;
  Add 1217 1217 1198; Add 1435 1435 1217; Mul 1217 769 1266; Mul 1198 756 1245; Add 1217 1217 1198;
  Sub 1217 1508 1217; Mul 1198 888 1217; Div 1259 1259 65; Mul 1092 1040 1291; Sub 1259 1259 1092;
  Mul 1092 887 1259; Add 1198 1198 1092; Add 1435 1435 1198; Mul 1198 761 1266; Mul 1092 756 1463;
  Add 1198 1198 1092; Add 1198 1483 1198; Mul 1092 890 1198; Div 1531 1531 65; Mul 1035 1027 1291;
  Sub 1531 1531 1035; Mul 1035 889 1531; Add 1092 1092 1035; Sub 1435 1435 1092; Div 1661 1661 65;
  Mul 1092 1046 1291; Sub 1661 1661 1092; Mul 1092 891 1661; Mul 1266 754 1266; Mul 1035 756 1159;
  Add 1266 1266 1035; Mul 1035 892 1266; Sub 1092 1092 1035; Add 1435 1435 1092; Mul 1092 881 1435;
  Mul 1035 882 1355; Add 1092 1092 1035; Sub 1385 1385 1092; Mul 1092 884 1435; Mul 1035 882 1600;
  Add 1092 1092 1035; Sub 1026 1026 1092; Mul 1092 910 1026; Mul 1035 777 1361; Mul 1521 153 1171;
  Add 1035 1035 1521; Mul 1521 210 1377; Mul 1382 154 1498; Add 1521 1521 1382; Sub 1035 1035 1521;
  Mul 1521 778 1322; Mul 1382 106 1422; Add 1521 1521 1382; Add 1035 1035 1521; Mul 1521 769 1298;
  Mul 1382 877 1245; Add 1521 1521 1382; Sub 1035 1035 1521; Mul 1521 761 1485; Mul 1382 94 1463;
  Add 1521 1521 1382; Sub 1035 1035 1521; Mul 1521 754 1490; Mul 1382 867 1159; Add 1521 1521 1382;
  Sub 1035 1035 1521; Mul 1521 777 1035; Mul 1382 895 1171; Add 1521 1521 1382; Sub 1361 1361 1521;
  Mul 1521 884 1361; Mul 1382 896 1600; Add 1521 1521 1382; Mul 1382 210 1035; Mul 1136 895 1498;
  Add 1382 1382 1136; Add 1377 1377 1382; Mul 1382 881 1377; Mul 1136 898 1355].
Definition casadi_f0_555 : list instruction := [
  Add 1382 1382 1136; Sub 1521 1521 1382; Mul 1382 778 1035; Mul 1136 895 1422; Add 1382 1382 1136;
  Sub 1382 1382 1322; Mul 1322 886 1382; Mul 1136 899 1408; Add 1322 1322 1136; Add 1521 1521 1322;
  Mul 1322 769 1035; Mul 1136 895 1245; Add 1322 1322 1136; Add 1322 1298 1322; Mul 1136 888 1322;
  Mul 1253 900 1259; Add 1136 1136 1253; Sub 1521 1521 1136; Mul 1136 761 1035; Mul 1253 895 1463;
  Add 1136 1136 1253; Add 1136 1485 1136; Mul 1253 890 1136; Mul 1561 901 1531; Add 1253 1253 1561;
  Sub 1521 1521 1253; Mul 1253 754 1035; Mul 1561 895 1159; Add 1253 1253 1561; Add 1490 1490 1253;
  Mul 1253 892 1490; Mul 1561 902 1661; Add 1253 1253 1561; Sub 1521 1521 1253; Mul 1253 884 1521;
  Mul 1561 897 1600; Add 1253 1253 1561; Sub 1361 1361 1253; Div 1253 1361 905; Mul 1561 881 1521;
  Mul 1669 897 1355; Add 1561 1561 1669; Add 1377 1377 1561; Mul 1561 904 1377; Mul 1361 903 1361;
  Add 1561 1561 1361; Mul 1361 886 1521; Mul 1669 897 1408; Add 1361 1361 1669; Sub 1382 1382 1361;
  Mul 1361 906 1382; Add 1561 1561 1361; Mul 1361 888 1521; Mul 1669 897 1259; Add 1361 1361 1669;
  Add 1322 1322 1361; Mul 1361 907 1322; Add 1561 1561 1361; Mul 1361 890 1521; Mul 1669 897 1531;
  Add 1361 1361 1669; Add 1136 1136 1361; Mul 1361 908 1136; Add 1561 1561 1361; Mul 1361 892 1521;
  Mul 1669 897 1661; Add 1361 1361 1669; Add 1490 1490 1361; Mul 1361 909 1490; Add 1561 1561 1361;
  Div 1561 1561 1067; Mul 1361 1214 1561; Sub 1253 1253 1361; Mul 1361 894 1253; Add 1092 1092 1361;
  Mul 1361 912 1385; Div 1377 1377 905; Mul 1669 1614 1561; Sub 1377 1377 1669; Mul 1669 893 1377;
  Add 1361 1361 1669; Sub 1092 1092 1361; Mul 1361 886 1435; Mul 1669 882 1408; Add 1361 1361 1669;
  Sub 1636 1636 1361; Mul 1361 914 1636; Div 1382 1382 905; Mul 1669 1273 1561; Sub 1382 1382 1669;
  Mul 1669 913 1382; Add 1361 1361 1669; Add 1092 1092 1361; Mul 1361 888 1435; Mul 1669 882 1259;
  Add 1361 1361 1669; Sub 1217 1217 1361; Mul 1361 916 1217; Div 1322 1322 905; Mul 1669 1260 1561;
  Sub 1322 1322 1669; Mul 1669 915 1322; Add 1361 1361 1669; Sub 1092 1092 1361; Mul 1361 890 1435;
  Mul 1669 882 1531; Add 1361 1361 1669; Add 1198 1198 1361; Mul 1361 918 1198; Div 1136 1136 905;
  Mul 1669 1249 1561; Sub 1136 1136 1669; Mul 1669 917 1136; Add 1361 1361 1669; Add 1092 1092 1361;
  Div 1490 1490 905; Mul 1361 1569 1561; Sub 1490 1490 1361; Mul 1361 919 1490; Mul 1669 892 1435;
  Mul 1100 882 1661; Add 1669 1669 1100; Add 1266 1266 1669; Mul 1669 920 1266; Sub 1361 1361 1669;
  Sub 1092 1092 1361; Mul 1361 912 1092; Mul 1669 911 1377; Add 1361 1361 1669; Add 1385 1385 1361;
  Mul 1361 944 1385; Mul 1669 210 1028; Mul 1100 168 1498; Add 1669 1669 1100; Mul 1100 777 1290;
  Mul 1591 171 1171; Add 1100 1100 1591; Add 1669 1669 1100; Mul 1100 778 1298; Mul 1591 877 1422;
  Add 1100 1100 1591; Add 1669 1669 1100; Mul 1100 769 1430; Mul 1591 878 1245; Add 1100 1100 1591;
  Add 1669 1669 1100; Mul 1100 761 1631; Mul 1591 98 1463; Add 1100 1100 1591].
Definition casadi_f0_556 : list instruction := [
  Add 1669 1669 1100; Mul 1100 754 1508; Mul 1591 855 1159; Add 1100 1100 1591; Add 1669 1669 1100;
  Mul 1100 210 1669; Mul 1591 922 1498; Add 1100 1100 1591; Sub 1028 1028 1100; Mul 1100 881 1028;
  Mul 1591 923 1355; Add 1100 1100 1591; Mul 1591 777 1669; Mul 1578 922 1171; Add 1591 1591 1578;
  Sub 1290 1290 1591; Mul 1591 884 1290; Mul 1578 925 1600; Add 1591 1591 1578; Add 1100 1100 1591;
  Mul 1591 778 1669; Mul 1578 922 1422; Add 1591 1591 1578; Sub 1591 1591 1298; Mul 1298 886 1591;
  Mul 1578 926 1408; Add 1298 1298 1578; Add 1100 1100 1298; Mul 1298 769 1669; Mul 1578 922 1245;
  Add 1298 1298 1578; Sub 1430 1430 1298; Mul 1298 888 1430; Mul 1578 927 1259; Add 1298 1298 1578;
  Add 1100 1100 1298; Mul 1298 761 1669; Mul 1578 922 1463; Add 1298 1298 1578; Sub 1298 1631 1298;
  Mul 1578 890 1298; Mul 1570 928 1531; Add 1578 1578 1570; Add 1100 1100 1578; Mul 1578 754 1669;
  Mul 1570 922 1159; Add 1578 1578 1570; Sub 1508 1508 1578; Mul 1578 892 1508; Mul 1570 929 1661;
  Add 1578 1578 1570; Add 1100 1100 1578; Mul 1578 881 1100; Mul 1570 924 1355; Add 1578 1578 1570;
  Sub 1028 1028 1578; Mul 1578 884 1100; Mul 1570 924 1600; Add 1578 1578 1570; Sub 1290 1290 1578;
  Mul 1578 910 1290; Mul 1570 931 1253; Add 1578 1578 1570; Mul 1570 912 1028; Mul 1612 930 1377;
  Add 1570 1570 1612; Sub 1578 1578 1570; Mul 1570 886 1100; Mul 1612 924 1408; Add 1570 1570 1612;
  Sub 1591 1591 1570; Mul 1570 914 1591; Mul 1612 933 1382; Add 1570 1570 1612; Add 1578 1578 1570;
  Mul 1570 888 1100; Mul 1612 924 1259; Add 1570 1570 1612; Sub 1430 1430 1570; Mul 1570 916 1430;
  Mul 1612 934 1322; Add 1570 1570 1612; Sub 1578 1578 1570; Mul 1570 890 1100; Mul 1612 924 1531;
  Add 1570 1570 1612; Sub 1298 1298 1570; Mul 1570 918 1298; Mul 1612 935 1136; Add 1570 1570 1612;
  Sub 1578 1578 1570; Mul 1570 892 1100; Mul 1612 924 1661; Add 1570 1570 1612; Sub 1508 1508 1570;
  Mul 1570 920 1508; Mul 1612 936 1490; Add 1570 1570 1612; Sub 1578 1578 1570; Mul 1570 912 1578;
  Mul 1612 932 1377; Add 1570 1570 1612; Add 1028 1028 1570; Div 1570 1028 938; Mul 1028 937 1028;
  Mul 1612 910 1578; Mul 1309 932 1253; Add 1612 1612 1309; Sub 1290 1290 1612; Mul 1612 939 1290;
  Add 1028 1028 1612; Mul 1612 914 1578; Mul 1309 932 1382; Add 1612 1612 1309; Sub 1591 1591 1612;
  Mul 1612 940 1591; Add 1028 1028 1612; Mul 1612 916 1578; Mul 1309 932 1322; Add 1612 1612 1309;
  Add 1430 1430 1612; Mul 1612 941 1430; Add 1028 1028 1612; Mul 1612 918 1578; Mul 1309 932 1136;
  Add 1612 1612 1309; Add 1298 1298 1612; Mul 1612 942 1298; Add 1028 1028 1612; Mul 1612 920 1578;
  Mul 1309 932 1490; Add 1612 1612 1309; Add 1508 1508 1612; Mul 1612 943 1508; Add 1028 1028 1612;
  Div 1028 1028 1615; Mul 1612 1446 1028; Sub 1570 1570 1612; Mul 1612 921 1570; Add 1361 1361 1612;
  Mul 1612 910 1092; Mul 1309 911 1253; Add 1612 1612 1309; Sub 1026 1026 1612; Mul 1612 947 1026;
  Div 1290 1290 938; Mul 1309 1184 1028; Sub 1290 1290 1309; Mul 1309 946 1290].
Definition casadi_f0_557 : list instruction := [
  Add 1612 1612 1309; Add 1361 1361 1612; Mul 1612 914 1092; Mul 1309 911 1382; Add 1612 1612 1309;
  Sub 1636 1636 1612; Mul 1612 949 1636; Div 1591 1591 938; Mul 1309 1160 1028; Sub 1591 1591 1309;
  Mul 1309 948 1591; Add 1612 1612 1309; Add 1361 1361 1612; Mul 1612 916 1092; Mul 1309 911 1322;
  Add 1612 1612 1309; Add 1217 1217 1612; Mul 1612 951 1217; Div 1430 1430 938; Mul 1309 1328 1028;
  Sub 1430 1430 1309; Mul 1309 950 1430; Add 1612 1612 1309; Add 1361 1361 1612; Mul 1612 918 1092;
  Mul 1309 911 1136; Add 1612 1612 1309; Sub 1612 1612 1198; Mul 1198 953 1612; Div 1298 1298 938;
  Mul 1309 1155 1028; Sub 1298 1298 1309; Mul 1309 952 1298; Add 1198 1198 1309; Add 1361 1361 1198;
  Mul 1198 920 1092; Mul 1309 911 1490; Add 1198 1198 1309; Sub 1198 1198 1266; Mul 1266 955 1198;
  Div 1508 1508 938; Mul 1309 1220 1028; Sub 1508 1508 1309; Mul 1309 954 1508; Add 1266 1266 1309;
  Add 1361 1361 1266; Mul 1266 944 1361; Mul 1309 945 1570; Add 1266 1266 1309; Sub 1385 1385 1266;
  Mul 1266 986 1385; Mul 1309 210 1020; Mul 1592 175 1498; Add 1309 1309 1592; Mul 1592 777 1635;
  Mul 1492 188 1171; Add 1592 1592 1492; Add 1309 1309 1592; Mul 1592 778 1485; Mul 1492 94 1422;
  Add 1592 1592 1492; Add 1309 1309 1592; Mul 1592 769 1631; Mul 1492 98 1245; Add 1592 1592 1492;
  Add 1309 1309 1592; Mul 1592 761 1083; Mul 1492 172 1463; Add 1592 1592 1492; Sub 1309 1309 1592;
  Mul 1592 754 1483; Mul 1492 201 1159; Add 1592 1592 1492; Sub 1309 1309 1592; Mul 1592 210 1309;
  Mul 1498 957 1498; Add 1592 1592 1498; Sub 1020 1020 1592; Mul 1592 881 1020; Mul 1498 958 1355;
  Add 1592 1592 1498; Mul 1498 777 1309; Mul 1171 957 1171; Add 1498 1498 1171; Sub 1635 1635 1498;
  Mul 1498 884 1635; Mul 1171 960 1600; Add 1498 1498 1171; Add 1592 1592 1498; Mul 1498 778 1309;
  Mul 1422 957 1422; Add 1498 1498 1422; Sub 1498 1498 1485; Mul 1485 886 1498; Mul 1422 961 1408;
  Add 1485 1485 1422; Add 1592 1592 1485; Mul 1485 769 1309; Mul 1245 957 1245; Add 1485 1485 1245;
  Sub 1631 1631 1485; Mul 1485 888 1631; Mul 1245 962 1259; Add 1485 1485 1245; Add 1592 1592 1485;
  Mul 1485 761 1309; Mul 1463 957 1463; Add 1485 1485 1463; Add 1083 1083 1485; Mul 1485 890 1083;
  Mul 1463 963 1531; Add 1485 1485 1463; Sub 1592 1592 1485; Mul 1485 754 1309; Mul 1159 957 1159;
  Add 1485 1485 1159; Add 1483 1483 1485; Mul 1485 892 1483; Mul 1159 964 1661; Add 1485 1485 1159;
  Sub 1592 1592 1485; Mul 1485 881 1592; Mul 1159 959 1355; Add 1485 1485 1159; Sub 1020 1020 1485;
  Mul 1485 884 1592; Mul 1159 959 1600; Add 1485 1485 1159; Sub 1635 1635 1485; Mul 1485 910 1635;
  Mul 1159 966 1253; Add 1485 1485 1159; Mul 1159 912 1020; Mul 1463 965 1377; Add 1159 1159 1463;
  Sub 1485 1485 1159; Mul 1159 886 1592; Mul 1463 959 1408; Add 1159 1159 1463; Sub 1498 1498 1159;
  Mul 1159 914 1498; Mul 1463 968 1382; Add 1159 1159 1463; Add 1485 1485 1159; Mul 1159 888 1592;
  Mul 1463 959 1259; Add 1159 1159 1463; Sub 1631 1631 1159; Mul 1159 916 1631].
Definition casadi_f0_558 : list instruction := [
  Mul 1463 969 1322; Add 1159 1159 1463; Sub 1485 1485 1159; Mul 1159 890 1592; Mul 1463 959 1531;
  Add 1159 1159 1463; Add 1083 1083 1159; Mul 1159 918 1083; Mul 1463 970 1136; Add 1159 1159 1463;
  Add 1485 1485 1159; Mul 1159 892 1592; Mul 1463 959 1661; Add 1159 1159 1463; Add 1483 1483 1159;
  Mul 1159 920 1483; Mul 1463 971 1490; Add 1159 1159 1463; Add 1485 1485 1159; Mul 1159 912 1485;
  Mul 1463 967 1377; Add 1159 1159 1463; Add 1020 1020 1159; Mul 1159 944 1020; Mul 1463 972 1570;
  Add 1159 1159 1463; Mul 1463 910 1485; Mul 1245 967 1253; Add 1463 1463 1245; Sub 1635 1635 1463;
  Mul 1463 947 1635; Mul 1245 974 1290; Add 1463 1463 1245; Add 1159 1159 1463; Mul 1463 914 1485;
  Mul 1245 967 1382; Add 1463 1463 1245; Sub 1498 1498 1463; Mul 1463 949 1498; Mul 1245 975 1591;
  Add 1463 1463 1245; Add 1159 1159 1463; Mul 1463 916 1485; Mul 1245 967 1322; Add 1463 1463 1245;
  Add 1631 1631 1463; Mul 1463 951 1631; Mul 1245 976 1430; Add 1463 1463 1245; Add 1159 1159 1463;
  Mul 1463 918 1485; Mul 1245 967 1136; Add 1463 1463 1245; Sub 1463 1463 1083; Mul 1083 953 1463;
  Mul 1245 977 1298; Add 1083 1083 1245; Add 1159 1159 1083; Mul 1083 920 1485; Mul 1245 967 1490;
  Add 1083 1083 1245; Sub 1083 1083 1483; Mul 1483 955 1083; Mul 1245 978 1508; Add 1483 1483 1245;
  Add 1159 1159 1483; Mul 1483 944 1159; Mul 1245 973 1570; Add 1483 1483 1245; Sub 1020 1020 1483;
  Div 1483 1020 980; Mul 1020 979 1020; Mul 1245 947 1159; Mul 1422 973 1290; Add 1245 1245 1422;
  Sub 1635 1635 1245; Mul 1245 981 1635; Add 1020 1020 1245; Mul 1245 949 1159; Mul 1422 973 1591;
  Add 1245 1245 1422; Sub 1498 1498 1245; Mul 1245 982 1498; Add 1020 1020 1245; Mul 1245 951 1159;
  Mul 1422 973 1430; Add 1245 1245 1422; Sub 1631 1631 1245; Mul 1245 983 1631; Add 1020 1020 1245;
  Mul 1245 953 1159; Mul 1422 973 1298; Add 1245 1245 1422; Sub 1463 1463 1245; Mul 1245 984 1463;
  Add 1020 1020 1245; Mul 1245 955 1159; Mul 1422 973 1508; Add 1245 1245 1422; Sub 1083 1083 1245;
  Mul 1245 985 1083; Add 1020 1020 1245; Div 1020 1020 1630; Mul 1245 1629 1020; Sub 1483 1483 1245;
  Mul 1245 956 1483; Add 1266 1266 1245; Mul 1245 947 1361; Mul 1422 945 1290; Add 1245 1245 1422;
  Sub 1026 1026 1245; Mul 1245 989 1026; Div 1635 1635 980; Mul 1422 1262 1020; Sub 1635 1635 1422;
  Mul 1422 988 1635; Add 1245 1245 1422; Add 1266 1266 1245; Mul 1245 949 1361; Mul 1422 945 1591;
  Add 1245 1245 1422; Sub 1636 1636 1245; Mul 1245 991 1636; Div 1498 1498 980; Mul 1422 1306 1020;
  Sub 1498 1498 1422; Mul 1422 990 1498; Add 1245 1245 1422; Add 1266 1266 1245; Mul 1245 951 1361;
  Mul 1422 945 1430; Add 1245 1245 1422; Sub 1217 1217 1245; Mul 1245 993 1217; Div 1631 1631 980;
  Mul 1422 1626 1020; Sub 1631 1631 1422; Mul 1422 992 1631; Add 1245 1245 1422; Add 1266 1266 1245;
  Mul 1245 953 1361; Mul 1422 945 1298; Add 1245 1245 1422; Sub 1612 1612 1245; Mul 1245 995 1612;
  Div 1463 1463 980; Mul 1422 1530 1020; Sub 1463 1463 1422; Mul 1422 994 1463].
Definition casadi_f0_559 : list instruction := [
  Add 1245 1245 1422; Add 1266 1266 1245; Mul 1245 955 1361; Mul 1422 945 1508; Add 1245 1245 1422;
  Sub 1198 1198 1245; Mul 1245 997 1198; Div 1083 1083 980; Mul 1422 1472 1020; Sub 1083 1083 1422;
  Mul 1422 996 1083; Add 1245 1245 1422; Add 1266 1266 1245; Mul 1245 986 1266; Mul 1422 987 1483;
  Add 1245 1245 1422; Sub 1385 1385 1245; Div 1245 1385 999; Mul 1385 998 1385; Mul 1422 989 1266;
  Mul 1171 987 1635; Add 1422 1422 1171; Sub 1026 1026 1422; Mul 1422 1000 1026; Add 1385 1385 1422;
  Mul 1422 991 1266; Mul 1171 987 1498; Add 1422 1422 1171; Sub 1636 1636 1422; Mul 1422 1001 1636;
  Add 1385 1385 1422; Mul 1422 993 1266; Mul 1171 987 1631; Add 1422 1422 1171; Sub 1217 1217 1422;
  Mul 1422 1002 1217; Add 1385 1385 1422; Mul 1422 995 1266; Mul 1171 987 1463; Add 1422 1422 1171;
  Sub 1612 1612 1422; Mul 1422 1003 1612; Add 1385 1385 1422; Mul 1422 997 1266; Mul 1171 987 1083;
  Add 1422 1422 1171; Sub 1198 1198 1422; Mul 1422 1004 1198; Add 1385 1385 1422; Div 1385 1385 1095;
  Mul 1422 1596 1385; Sub 1245 1245 1422; Mul 1245 211 1245; Mul 1422 1005 1395; Sub 1245 1245 1422;
  Div 1026 1026 999; Mul 1422 1331 1385; Sub 1026 1026 1422; Mul 1026 779 1026; Mul 1422 1007 1513;
  Sub 1026 1026 1422; Add 1245 1245 1026; Div 1636 1636 999; Mul 1026 1080 1385; Sub 1636 1636 1026;
  Mul 1636 767 1636; Mul 1026 1008 1269; Add 1636 1636 1026; Add 1245 1245 1636; Div 1217 1217 999;
  Mul 1636 1056 1385; Sub 1217 1217 1636; Mul 1217 775 1217; Mul 1636 1009 1201; Sub 1217 1217 1636;
  Add 1245 1245 1217; Div 1612 1612 999; Mul 1217 1068 1385; Sub 1612 1612 1217; Mul 1612 815 1612;
  Mul 1217 1010 1593; Add 1612 1612 1217; Add 1245 1245 1612; Div 1198 1198 999; Mul 1612 1178 1385;
  Sub 1198 1198 1612; Mul 1198 833 1198; Mul 1612 1011 1202; Add 1198 1198 1612; Add 1245 1245 1198;
  Div 1245 1245 999; Mul 1385 1033 1385; Sub 1245 1245 1385; Mul 1385 756 1245; Add 1625 1625 1385;
  Sub 1514 1514 1625; Mul 1309 1012 1309; Mul 1483 211 1483; Mul 1625 986 1395; Sub 1483 1483 1625;
  Mul 1635 779 1635; Mul 1625 989 1513; Sub 1635 1635 1625; Add 1483 1483 1635; Mul 1498 767 1498;
  Mul 1635 991 1269; Add 1498 1498 1635; Add 1483 1483 1498; Mul 1631 775 1631; Mul 1498 993 1201;
  Sub 1631 1631 1498; Add 1483 1483 1631; Mul 1463 815 1463; Mul 1631 995 1593; Add 1463 1463 1631;
  Add 1483 1483 1463; Mul 1083 833 1083; Mul 1463 997 1202; Add 1083 1083 1463; Add 1483 1483 1083;
  Mul 1266 1006 1266; Mul 1083 987 1245; Add 1266 1266 1083; Sub 1483 1483 1266; Div 1483 1483 980;
  Mul 1020 1534 1020; Sub 1483 1483 1020; Mul 1020 957 1483; Add 1309 1309 1020; Sub 1514 1514 1309;
  Mul 1669 1013 1669; Mul 1570 211 1570; Mul 1309 944 1395; Sub 1570 1570 1309; Mul 1290 779 1290;
  Mul 1309 947 1513; Sub 1290 1290 1309; Add 1570 1570 1290; Mul 1591 767 1591; Mul 1290 949 1269;
  Add 1591 1591 1290; Add 1570 1570 1591; Mul 1430 775 1430; Mul 1591 951 1201; Sub 1430 1430 1591;
  Add 1570 1570 1430; Mul 1298 815 1298; Mul 1430 953 1593; Add 1298 1298 1430].
Definition casadi_f0_560 : list instruction := [
  Add 1570 1570 1298; Mul 1508 833 1508; Mul 1298 955 1202; Add 1508 1508 1298; Add 1570 1570 1508;
  Mul 1361 1006 1361; Mul 1508 945 1245; Add 1361 1361 1508; Sub 1570 1570 1361; Mul 1159 1012 1159;
  Mul 1361 973 1483; Add 1159 1159 1361; Sub 1570 1570 1159; Div 1570 1570 938; Mul 1028 1397 1028;
  Sub 1570 1570 1028; Mul 1028 922 1570; Add 1669 1669 1028; Sub 1514 1514 1669; Mul 1035 1014 1035;
  Mul 1253 779 1253; Mul 1669 910 1513; Sub 1253 1253 1669; Mul 1377 211 1377; Mul 1669 912 1395;
  Sub 1377 1377 1669; Sub 1253 1253 1377; Mul 1382 767 1382; Mul 1377 914 1269; Add 1382 1382 1377;
  Add 1253 1253 1382; Mul 1322 775 1322; Mul 1382 916 1201; Sub 1322 1322 1382; Sub 1253 1253 1322;
  Mul 1136 815 1136; Mul 1322 918 1593; Add 1136 1136 1322; Sub 1253 1253 1136; Mul 1490 833 1490;
  Mul 1136 920 1202; Add 1490 1490 1136; Sub 1253 1253 1490; Mul 1092 1006 1092; Mul 1490 911 1245;
  Add 1092 1092 1490; Sub 1253 1253 1092; Mul 1485 1012 1485; Mul 1092 967 1483; Add 1485 1485 1092;
  Sub 1253 1253 1485; Mul 1578 1013 1578; Mul 1485 932 1570; Add 1578 1578 1485; Sub 1253 1253 1578;
  Div 1253 1253 905; Mul 1561 1553 1561; Sub 1253 1253 1561; Mul 1561 895 1253; Add 1035 1035 1561;
  Sub 1514 1514 1035; Mul 1443 1015 1443; Mul 1355 211 1355; Mul 1395 881 1395; Sub 1355 1355 1395;
  Mul 1600 779 1600; Mul 1513 884 1513; Sub 1600 1600 1513; Add 1355 1355 1600; Mul 1408 767 1408;
  Mul 1269 886 1269; Add 1408 1408 1269; Add 1355 1355 1408; Mul 1259 775 1259; Mul 1201 888 1201;
  Sub 1259 1259 1201; Add 1355 1355 1259; Mul 1531 815 1531; Mul 1593 890 1593; Add 1531 1531 1593;
  Add 1355 1355 1531; Mul 1661 833 1661; Mul 1202 892 1202; Add 1661 1661 1202; Add 1355 1355 1661;
  Mul 1435 1006 1435; Mul 1661 882 1245; Add 1435 1435 1661; Sub 1355 1355 1435; Mul 1592 1012 1592;
  Mul 1435 959 1483; Add 1592 1592 1435; Sub 1355 1355 1592; Mul 1100 1013 1100; Mul 1592 924 1570;
  Add 1100 1100 1592; Sub 1355 1355 1100; Mul 1521 1014 1521; Mul 1100 897 1253; Add 1521 1521 1100;
  Sub 1355 1355 1521; Div 1355 1355 65; Mul 1291 1623 1291; Sub 1355 1355 1291; Mul 1291 875 1355;
  Add 1443 1443 1291; Sub 1514 1514 1443; Div 1514 1514 92; Mul 1265 759 1265; Sub 1514 1514 1265;
  Out 1 114 1514; Out 1 115 1355; Out 1 116 1253; Out 1 117 1570; Out 1 118 1483; Out 1 119 1245;
  Arg 1245 1 126; Out 1 120 1245; Arg 1483 1 127; Out 1 121 1483; Arg 1570 1 128; Out 1 122 1570;
  Arg 1253 1 129; Out 1 123 1253; Arg 1355 1 130; Out 1 124 1355; Arg 1514 1 131; Out 1 125 1514;
  Arg 1265 1 122; Mul 1443 8 1265; Mul 1291 10 1443; Arg 1521 1 125; Mul 1100 16 1521; Mul 1592 21 1100;
  Mul 1521 15 1521; Mul 1435 18 1521; Mul 1661 14 1100; Add 1435 1435 1661; Mul 1661 15 1435;
  Sub 1592 1592 1661; Mul 1661 18 1100; Mul 1202 14 1521; Sub 1661 1661 1202; Mul 1661 16 1661;
  Mul 1202 17 1521; Sub 1661 1661 1202; Sub 1202 1592 1661; Mul 1531 28 1521; Mul 1593 26 1100].
Definition casadi_f0_561 : list instruction := [
  Add 1531 1531 1593; Mul 1593 1031 1531; Mul 1259 28 1100; Mul 1201 26 1521; Sub 1259 1259 1201;
  Mul 1201 29 1259; Sub 1408 1593 1201; Mul 1408 20 1408; Add 1202 1202 1408; Mul 1201 20 1201;
  Add 1592 1592 1201; Add 1202 1202 1592; Mul 1593 20 1593; Add 1661 1661 1593; Add 1661 1661 1592;
  Add 1593 1202 1661; Mul 1661 19 1661; Arg 1201 1 124; Mul 1408 35 1201; Mul 1269 30 1408; Sub 1661 1661 1269;
  Mul 1201 19 1201; Mul 1269 41 1201; Mul 1600 42 1100; Mul 1513 40 1521; Sub 1600 1600 1513; Mul 1513 43 1100;
  Sub 1600 1600 1513; Mul 1513 44 1259; Add 1600 1600 1513; Mul 1513 35 1600; Add 1269 1269 1513;
  Sub 1661 1661 1269; Mul 1269 19 1661; Mul 1513 38 1408; Sub 1269 1269 1513; Mul 1600 19 1600;
  Mul 1513 41 1408; Sub 1600 1600 1513; Mul 1513 12 1201; Mul 1202 35 1202; Add 1513 1513 1202;
  Sub 1600 1600 1513; Mul 1513 35 1600; Mul 1202 46 1201; Add 1513 1513 1202; Sub 1269 1269 1513;
  Sub 1593 1593 1269; Sub 1593 1593 1592; Mul 1513 50 1531; Mul 1202 1039 1513; Mul 1395 50 1259;
  Mul 1035 19 1395; Mul 1561 49 1408; Sub 1035 1035 1561; Mul 1561 51 1201; Sub 1035 1035 1561;
  Mul 1561 1041 1035; Sub 1578 1202 1561; Mul 1578 37 1578; Add 1593 1593 1578; Mul 1578 49 1201;
  Mul 1485 35 1395; Add 1578 1578 1485; Mul 1485 51 1408; Sub 1578 1578 1485; Mul 1485 64 1578;
  Add 1561 1485 1561; Mul 1561 37 1561; Add 1561 1592 1561; Add 1593 1593 1561; Mul 1092 43 1521;
  Mul 1490 42 1521; Mul 1136 40 1100; Add 1490 1490 1136; Sub 1092 1092 1490; Mul 1490 44 1531;
  Sub 1092 1092 1490; Mul 1490 67 1092; Mul 1136 19 1490; Mul 1322 71 1408; Sub 1136 1136 1322;
  Mul 1322 75 1201; Mul 1435 16 1435; Mul 1382 21 1521; Add 1435 1435 1382; Mul 1531 74 1531; Mul 1259 20 1259;
  Mul 1259 34 1259; Sub 1531 1531 1259; Add 1435 1435 1531; Add 1531 1435 1435; Mul 1259 35 1531;
  Sub 1322 1322 1259; Add 1136 1136 1322; Mul 1322 73 1201; Mul 1259 35 1435; Sub 1322 1322 1259;
  Mul 1259 19 1092; Mul 1382 70 1408; Sub 1259 1259 1382; Add 1322 1322 1259; Sub 1136 1136 1322;
  Mul 1322 76 1513; Mul 1259 37 1578; Mul 1382 57 1259; Sub 1322 1322 1382; Sub 1136 1136 1322;
  Mul 1322 67 1136; Mul 1322 66 1322; Arg 1382 1 123; Mul 1377 53 1382; Mul 1669 77 1377; Sub 1322 1322 1669;
  Mul 1382 66 1382; Mul 1669 11 1382; Mul 1028 53 1593; Add 1669 1669 1028; Sub 1322 1322 1669;
  Mul 1669 53 1322; Mul 1028 78 1382; Add 1669 1669 1028; Add 1593 1593 1669; Sub 1593 1593 1561;
  Mul 1028 87 1377; Mul 1159 83 1513; Mul 1361 66 1159; Add 1028 1028 1361; Mul 1361 88 1382; Mul 1578 83 1578;
  Mul 1508 53 1578; Add 1361 1361 1508; Add 1028 1028 1361; Mul 1361 1054 1028; Mul 1508 83 1035;
  Mul 1298 1058 1508; Sub 1430 1361 1298; Mul 1430 80 1430; Add 1593 1593 1430; Add 1561 1561 1669;
  Mul 1669 66 1578; Mul 1430 88 1377; Sub 1669 1669 1430; Mul 1430 87 1382; Mul 1591 53 1159;
  Sub 1430 1430 1591; Add 1669 1669 1430; Mul 1430 93 1669; Add 1298 1430 1298].
Definition casadi_f0_562 : list instruction := [
  Mul 1298 80 1298; Add 1561 1561 1298; Add 1593 1593 1561; Mul 1298 9 1593; Add 1291 1291 1298;
  Mul 1322 66 1322; Mul 1298 78 1377; Sub 1322 1322 1298; Sub 1322 1322 1136; Mul 1136 72 1028;
  Mul 1298 80 1669; Mul 1591 63 1298; Sub 1136 1136 1591; Sub 1322 1322 1136; Mul 1136 67 1322; Mul 1136 8 1136;
  Mul 1265 9 1265; Mul 1591 97 1265; Sub 1136 1136 1591; Add 1291 1291 1136; Mul 1136 9 1291; Mul 1591 84 1443;
  Add 1136 1136 1591; Sub 1591 1136 1561; Mul 1669 104 1669; Mul 1290 8 1669; Mul 1309 103 1265;
  Sub 1290 1290 1309; Mul 1309 105 1443; Mul 1020 104 1028; Mul 1266 9 1020; Sub 1309 1309 1266;
  Sub 1290 1290 1309; Mul 1309 33 1290; Mul 1266 104 1508; Mul 1083 1066 1266; Add 1463 1309 1083;
  Mul 1463 100 1463; Sub 1591 1591 1463; Mul 1291 8 1291; Mul 1463 84 1265; Sub 1291 1291 1463;
  Sub 1291 1291 1322; Mul 1322 103 1443; Mul 1463 9 1669; Add 1322 1322 1463; Mul 1463 105 1265;
  Mul 1631 8 1020; Add 1463 1463 1631; Sub 1322 1322 1463; Mul 1463 96 1322; Mul 1631 100 1290;
  Mul 1498 117 1631; Sub 1463 1463 1498; Add 1291 1291 1463; Mul 1291 67 1291; Mul 1291 114 1291;
  Arg 1463 1 121; Mul 1498 113 1463; Mul 1635 116 1498; Sub 1291 1291 1635; Mul 1463 114 1463;
  Mul 1635 119 1463; Sub 1593 1593 1136; Sub 1593 1593 1561; Mul 1561 1044 1322; Sub 1083 1561 1083;
  Mul 1083 100 1083; Add 1593 1593 1083; Sub 1593 1593 1591; Mul 1593 113 1593; Add 1635 1635 1593;
  Sub 1291 1291 1635; Mul 1291 113 1291; Mul 1635 118 1463; Add 1291 1291 1635; Sub 1591 1591 1291;
  Mul 1290 120 1290; Mul 1291 114 1290; Mul 1635 60 1498; Sub 1291 1291 1635; Mul 1635 121 1463;
  Mul 1593 120 1322; Mul 1083 113 1593; Add 1635 1635 1083; Add 1291 1291 1635; Mul 1635 112 1291;
  Mul 1083 120 1266; Mul 1136 123 1083; Add 1635 1635 1136; Mul 1635 99 1635; Sub 1591 1591 1635;
  Mul 1291 125 1291; Mul 1291 110 1291; Mul 1635 125 1083; Mul 1635 126 1635; Add 1291 1291 1635;
  Mul 1291 122 1291; Add 1591 1591 1291; Div 1291 1591 92; Mul 1591 6 1591; Mul 1635 130 1443; Mul 1600 19 1600;
  Mul 1136 46 1408; Sub 1600 1600 1136; Mul 1661 35 1661; Mul 1136 38 1201; Add 1661 1661 1136;
  Add 1600 1600 1661; Mul 1259 52 1259; Mul 1661 76 1035; Add 1259 1259 1661; Add 1600 1600 1259;
  Mul 1259 66 1600; Mul 1661 129 1377; Sub 1259 1259 1661; Mul 1661 132 1382; Mul 1136 70 1201;
  Mul 1625 35 1092; Add 1136 1136 1625; Mul 1625 73 1408; Mul 1385 19 1435; Add 1625 1625 1385;
  Add 1136 1136 1625; Mul 1531 19 1531; Mul 1625 75 1408; Add 1531 1531 1625; Mul 1490 35 1490;
  Mul 1625 71 1201; Add 1490 1490 1625; Add 1531 1531 1490; Sub 1136 1136 1531; Mul 1531 133 1513;
  Mul 1035 37 1035; Mul 1035 57 1035; Sub 1531 1531 1035; Sub 1136 1136 1531; Mul 1531 53 1136;
  Add 1661 1661 1531; Add 1259 1259 1661; Mul 1298 27 1298; Mul 1661 72 1508; Add 1298 1298 1661;
  Add 1259 1259 1298; Mul 1298 9 1259; Add 1635 1635 1298; Add 1298 1136 1136; Mul 1298 66 1298;
  Mul 1661 136 1377].
Definition casadi_f0_563 : list instruction := [
  Sub 1298 1298 1661; Mul 1661 129 1382; Mul 1531 53 1600; Add 1661 1661 1531; Sub 1298 1298 1661;
  Mul 1661 66 1136; Mul 1531 132 1377; Sub 1661 1661 1531; Sub 1298 1298 1661; Mul 1028 138 1028;
  Mul 1661 80 1508; Mul 1661 63 1661; Sub 1028 1028 1661; Sub 1298 1298 1028; Add 1028 1298 1298;
  Mul 1028 8 1028; Mul 1661 139 1265; Sub 1028 1028 1661; Add 1635 1635 1028; Mul 1028 8 1298;
  Mul 1661 137 1265; Sub 1028 1028 1661; Sub 1635 1635 1028; Mul 1322 140 1322; Mul 1028 100 1266;
  Mul 1028 117 1028; Sub 1322 1322 1028; Add 1635 1635 1322; Mul 1322 141 1083; Mul 1322 121 1322;
  Mul 1028 142 1593; Add 1322 1322 1028; Sub 1635 1635 1322; Mul 1635 114 1635; Mul 1322 134 1498;
  Sub 1635 1635 1322; Mul 1322 145 1463; Mul 1028 8 1259; Mul 1661 130 1265; Sub 1028 1028 1661;
  Mul 1661 137 1443; Mul 1531 9 1298; Add 1661 1661 1531; Sub 1028 1028 1661; Mul 1631 111 1631;
  Mul 1661 96 1266; Add 1631 1631 1661; Add 1028 1028 1631; Mul 1631 141 1290; Mul 1631 124 1631;
  Mul 1083 146 1083; Add 1631 1631 1083; Sub 1028 1028 1631; Mul 1028 113 1028; Add 1322 1322 1028;
  Sub 1635 1635 1322; Mul 1322 1073 1635; Add 1591 1591 1322; Mul 1322 150 1463; Mul 1028 149 1443;
  Mul 1631 148 1266; Mul 1083 147 1020; Mul 1661 109 1083; Sub 1631 1631 1661; Add 1298 1298 1631;
  Mul 1631 9 1298; Add 1028 1028 1631; Mul 1266 151 1266; Mul 1631 147 1669; Mul 1661 109 1631;
  Add 1266 1266 1661; Add 1259 1259 1266; Mul 1266 8 1259; Mul 1661 152 1265; Sub 1266 1266 1661;
  Sub 1028 1028 1266; Mul 1266 148 1443; Mul 1661 9 1083; Sub 1266 1266 1661; Mul 1661 8 1631;
  Mul 1531 151 1265; Sub 1661 1661 1531; Sub 1266 1266 1661; Mul 1661 108 1266; Add 1028 1028 1661;
  Mul 1028 113 1028; Add 1322 1322 1028; Mul 1028 152 1443; Mul 1259 9 1259; Add 1028 1028 1259;
  Mul 1298 8 1298; Mul 1259 149 1265; Sub 1298 1298 1259; Add 1028 1028 1298; Mul 1298 151 1443;
  Mul 1259 9 1631; Add 1298 1298 1259; Mul 1259 148 1265; Mul 1661 8 1083; Add 1259 1259 1661;
  Sub 1298 1298 1259; Mul 1298 108 1298; Add 1028 1028 1298; Mul 1028 114 1028; Mul 1298 155 1498;
  Sub 1028 1028 1298; Add 1322 1322 1028; Mul 1028 1050 1322; Add 1591 1591 1028; Mul 1028 159 1443;
  Mul 1298 156 1578; Mul 1298 82 1298; Mul 1259 157 1508; Add 1298 1298 1259; Sub 1600 1600 1298;
  Mul 1298 66 1600; Mul 1259 158 1377; Sub 1298 1298 1259; Mul 1259 161 1382; Mul 1508 156 1508;
  Mul 1508 87 1508; Mul 1661 160 1159; Sub 1508 1508 1661; Sub 1136 1136 1508; Mul 1508 53 1136;
  Add 1259 1259 1508; Add 1298 1298 1259; Mul 1259 9 1298; Add 1028 1028 1259; Mul 1136 66 1136;
  Mul 1259 161 1377; Sub 1136 1136 1259; Mul 1259 158 1382; Mul 1600 53 1600; Add 1259 1259 1600;
  Sub 1136 1136 1259; Mul 1259 8 1136; Mul 1600 163 1265; Sub 1259 1259 1600; Add 1028 1028 1259;
  Mul 1259 167 1382; Mul 1600 166 1578; Mul 1508 53 1600; Add 1259 1259 1508; Mul 1508 164 1377;
  Mul 1661 156 1159; Mul 1531 66 1661; Add 1508 1508 1531; Sub 1259 1259 1508].
Definition casadi_f0_564 : list instruction := [
  Mul 1508 8 1259; Mul 1531 165 1265; Sub 1508 1508 1531; Mul 1531 169 1443; Mul 1600 66 1600;
  Mul 1035 167 1377; Sub 1600 1600 1035; Mul 1035 164 1382; Mul 1661 53 1661; Sub 1035 1035 1661;
  Sub 1600 1600 1035; Mul 1035 9 1600; Add 1531 1531 1035; Sub 1508 1508 1531; Mul 1508 108 1508;
  Sub 1028 1028 1508; Mul 1028 114 1028; Mul 1508 162 1498; Sub 1028 1028 1508; Mul 1508 170 1463;
  Mul 1298 8 1298; Mul 1531 159 1265; Sub 1298 1298 1531; Mul 1531 163 1443; Mul 1136 9 1136;
  Add 1531 1531 1136; Sub 1298 1298 1531; Mul 1531 165 1443; Mul 1136 9 1259; Add 1531 1531 1136;
  Mul 1136 8 1600; Mul 1035 169 1265; Sub 1136 1136 1035; Add 1531 1531 1136; Mul 1136 108 1531;
  Add 1298 1298 1136; Mul 1298 113 1298; Add 1508 1508 1298; Sub 1028 1028 1508; Mul 1508 1070 1028;
  Add 1591 1591 1508; Mul 1508 179 1443; Mul 1298 177 1382; Mul 1136 174 1395; Mul 1395 173 1395;
  Mul 1035 49 1395; Add 1136 1136 1035; Add 1136 1136 1592; Mul 1035 174 1201; Mul 1661 35 1395;
  Add 1035 1035 1661; Mul 1661 176 1408; Sub 1035 1035 1661; Mul 1661 62 1035; Mul 1490 176 1201;
  Mul 1625 19 1395; Mul 1385 174 1408; Sub 1625 1625 1385; Sub 1490 1490 1625; Mul 1625 48 1490;
  Sub 1661 1661 1625; Add 1661 1136 1661; Mul 1625 53 1661; Add 1298 1298 1625; Mul 1625 176 1513;
  Sub 1092 1092 1625; Mul 1625 19 1092; Mul 1385 180 1408; Sub 1625 1625 1385; Mul 1385 182 1201;
  Mul 1395 56 1395; Mul 1513 174 1513; Sub 1395 1395 1513; Sub 1395 1395 1435; Mul 1435 35 1395;
  Add 1385 1385 1435; Add 1625 1625 1385; Mul 1385 55 1035; Add 1625 1625 1385; Mul 1385 66 1625;
  Mul 1435 181 1377; Sub 1385 1385 1435; Sub 1298 1298 1385; Mul 1385 86 1035; Sub 1298 1298 1385;
  Mul 1385 9 1298; Add 1508 1508 1385; Mul 1385 181 1382; Mul 1625 53 1625; Add 1385 1385 1625;
  Mul 1661 66 1661; Mul 1625 177 1377; Sub 1661 1661 1625; Add 1385 1385 1661; Mul 1661 91 1035;
  Add 1385 1385 1661; Mul 1661 8 1385; Mul 1625 184 1265; Sub 1661 1661 1625; Add 1508 1508 1661;
  Mul 1035 102 1035; Mul 1661 66 1490; Mul 1625 178 1377; Sub 1661 1661 1625; Mul 1625 8 1661;
  Mul 1435 185 1265; Sub 1625 1625 1435; Mul 1435 187 1443; Mul 1513 178 1382; Mul 1198 53 1490;
  Add 1513 1513 1198; Mul 1198 9 1513; Add 1435 1435 1198; Add 1625 1625 1435; Mul 1625 108 1625;
  Sub 1035 1035 1625; Add 1508 1508 1035; Mul 1508 114 1508; Mul 1035 183 1498; Sub 1508 1508 1035;
  Mul 1035 186 1463; Mul 1298 8 1298; Mul 1625 179 1265; Sub 1298 1298 1625; Mul 1625 184 1443; Mul 1385 9 1385;
  Add 1625 1625 1385; Sub 1298 1298 1625; Mul 1625 185 1443; Mul 1385 9 1661; Add 1625 1625 1385;
  Mul 1385 8 1513; Mul 1435 187 1265; Sub 1385 1385 1435; Sub 1625 1625 1385; Mul 1385 108 1625;
  Add 1298 1298 1385; Mul 1298 113 1298; Add 1035 1035 1298; Sub 1508 1508 1035; Mul 1035 1059 1508;
  Add 1591 1591 1035; Mul 1035 199 1443; Mul 1298 196 1201; Mul 1385 197 1100; Mul 1435 195 1521;
  Sub 1385 1385 1435; Mul 1435 190 1521; Mul 1198 192 1100].
Definition casadi_f0_565 : list instruction := [
  Add 1435 1435 1198; Mul 1198 198 1435; Add 1385 1385 1198; Mul 1198 35 1385; Add 1298 1298 1198;
  Mul 1198 189 1408; Mul 1612 25 1435; Mul 1217 190 1100; Mul 1636 192 1521; Sub 1217 1217 1636;
  Mul 1636 32 1217; Add 1612 1612 1636; Mul 1636 19 1612; Add 1198 1198 1636; Sub 1298 1298 1198;
  Mul 1198 48 1435; Mul 1636 19 1217; Mul 1026 194 1408; Sub 1636 1636 1026; Mul 1026 55 1636;
  Add 1198 1198 1026; Sub 1298 1298 1198; Mul 1198 66 1298; Mul 1026 193 1377; Sub 1198 1198 1026;
  Mul 1026 202 1382; Mul 1422 198 1217; Mul 1171 197 1521; Mul 1492 195 1100; Add 1171 1171 1492;
  Sub 1422 1422 1171; Mul 1171 62 1636; Mul 1492 194 1201; Mul 1217 35 1217; Add 1492 1492 1217;
  Mul 1217 48 1492; Sub 1171 1171 1217; Add 1171 1422 1171; Mul 1217 53 1171; Add 1026 1026 1217;
  Add 1198 1198 1026; Mul 1026 86 1636; Sub 1198 1198 1026; Mul 1026 9 1198; Add 1035 1035 1026;
  Mul 1171 66 1171; Mul 1026 202 1377; Sub 1171 1171 1026; Mul 1026 193 1382; Mul 1298 53 1298;
  Add 1026 1026 1298; Sub 1171 1171 1026; Mul 1026 91 1636; Add 1171 1171 1026; Mul 1026 8 1171;
  Mul 1298 205 1265; Sub 1026 1026 1298; Add 1035 1035 1026; Mul 1636 102 1636; Mul 1026 66 1492;
  Mul 1298 203 1377; Sub 1026 1026 1298; Mul 1298 191 1382; Mul 1217 53 1435; Sub 1298 1298 1217;
  Add 1026 1026 1298; Mul 1298 8 1026; Mul 1217 206 1265; Sub 1298 1298 1217; Mul 1217 208 1443;
  Mul 1052 191 1377; Mul 1180 66 1435; Add 1052 1052 1180; Mul 1180 203 1382; Mul 1285 53 1492;
  Add 1180 1180 1285; Add 1052 1052 1180; Mul 1180 9 1052; Sub 1217 1217 1180; Sub 1298 1298 1217;
  Mul 1298 108 1298; Sub 1636 1636 1298; Add 1035 1035 1636; Mul 1035 114 1035; Mul 1636 204 1498;
  Sub 1035 1035 1636; Mul 1636 207 1463; Mul 1198 8 1198; Mul 1298 199 1265; Sub 1198 1198 1298;
  Mul 1298 205 1443; Mul 1171 9 1171; Add 1298 1298 1171; Sub 1198 1198 1298; Mul 1298 206 1443;
  Mul 1171 9 1026; Add 1298 1298 1171; Mul 1171 208 1265; Mul 1217 8 1052; Add 1171 1171 1217;
  Sub 1298 1298 1171; Mul 1171 108 1298; Add 1198 1198 1171; Mul 1198 113 1198; Add 1636 1636 1198;
  Sub 1035 1035 1636; Mul 1636 1043 1035; Add 1591 1591 1636; Div 1591 1591 1085; Mul 1636 1072 1591;
  Sub 1291 1291 1636; Mul 1636 211 1291; Mul 1198 216 1463; Arg 1171 1 120; Mul 1217 215 1171;
  Mul 1180 113 1217; Sub 1198 1198 1180; Mul 1180 218 1198; Mul 1285 114 1245; Mul 1389 0 1498;
  Sub 1285 1285 1389; Mul 1389 217 1285; Add 1180 1180 1389; Mul 1171 216 1171; Mul 1389 1 1171;
  Mul 1209 215 1483; Add 1389 1389 1209; Sub 1180 1180 1389; Mul 1389 0 1463; Mul 1209 113 1245;
  Add 1389 1389 1209; Mul 1209 220 1389; Mul 1434 114 1217; Mul 1347 216 1498; Add 1434 1434 1347;
  Mul 1347 221 1434; Sub 1209 1209 1347; Sub 1180 1180 1209; Mul 1209 214 1180; Mul 1347 213 1209;
  Mul 1347 212 1347; Mul 1288 225 1347; Mul 1256 114 1171; Mul 1110 215 1498; Sub 1256 1256 1110;
  Mul 1110 101 1256; Mul 1594 107 1217; Sub 1110 1110 1594; Mul 1594 223 1110].
Definition casadi_f0_566 : list instruction := [
  Add 1284 1288 1594; Mul 1079 216 1483; Mul 1595 1 1217; Sub 1079 1079 1595; Mul 1595 113 1171;
  Mul 1467 215 1463; Add 1595 1595 1467; Mul 1467 218 1595; Mul 1175 228 1285; Add 1467 1467 1175;
  Add 1079 1079 1467; Mul 1467 221 1256; Mul 1175 224 1389; Add 1467 1467 1175; Sub 1079 1079 1467;
  Mul 1467 214 1079; Mul 1175 213 1467; Mul 1175 212 1175; Mul 1062 231 1175; Mul 1215 101 1434;
  Mul 1278 107 1171; Add 1215 1215 1278; Mul 1278 230 1215; Sub 1062 1062 1278; Sub 1278 1284 1062;
  Add 1594 1594 1288; Sub 1062 1594 1062; Add 1288 1278 1062; Mul 1549 144 1463; Mul 1690 215 1549;
  Mul 1588 240 1171; Add 1690 1690 1588; Mul 1588 236 1498; Mul 1270 238 1463; Add 1588 1588 1270;
  Mul 1270 220 1588; Mul 1400 237 1434; Add 1270 1270 1400; Sub 1690 1690 1270; Mul 1270 115 1217;
  Add 1690 1690 1270; Mul 1270 212 1215; Mul 1400 242 1270; Mul 1243 101 1463; Mul 1658 241 1243;
  Add 1400 1400 1658; Add 1400 1690 1400; Mul 1658 244 1400; Mul 1610 213 1079; Mul 1541 243 1610;
  Add 1652 1658 1541; Mul 1051 237 1256; Mul 1237 224 1588; Sub 1051 1051 1237; Mul 1549 216 1549;
  Mul 1237 240 1217; Sub 1549 1549 1237; Sub 1051 1051 1549; Mul 1549 115 1171; Sub 1051 1051 1549;
  Mul 1549 212 1110; Mul 1549 242 1549; Mul 1237 247 1243; Sub 1549 1549 1237; Sub 1549 1051 1549;
  Mul 1237 249 1549; Mul 1392 213 1180; Mul 1169 248 1392; Add 1218 1237 1169; Sub 1692 1652 1218;
  Sub 1288 1288 1692; Add 1169 1169 1237; Add 1541 1541 1658; Sub 1658 1169 1541; Add 1288 1288 1658;
  Mul 1658 9 1198; Mul 1237 217 1443; Add 1658 1658 1237; Mul 1237 8 1434; Mul 1692 220 1265;
  Add 1237 1237 1692; Sub 1658 1658 1237; Mul 1237 254 1658; Mul 1692 218 1443; Mul 1567 9 1285;
  Add 1692 1692 1567; Mul 1567 8 1389; Mul 1170 221 1265; Sub 1567 1567 1170; Sub 1692 1692 1567;
  Mul 1567 253 1692; Add 1237 1237 1567; Mul 1198 8 1198; Mul 1567 217 1265; Sub 1198 1198 1567;
  Mul 1567 220 1443; Mul 1170 9 1434; Sub 1567 1567 1170; Sub 1198 1198 1567; Mul 1567 257 1198;
  Mul 1170 221 1443; Mul 1568 9 1389; Add 1170 1170 1568; Mul 1568 8 1285; Mul 1448 218 1265;
  Sub 1568 1568 1448; Add 1170 1170 1568; Mul 1568 256 1170; Add 1567 1567 1568; Mul 1568 259 1171;
  Sub 1448 1483 1570; Mul 1557 215 1448; Add 1568 1568 1557; Sub 1567 1567 1568; Add 1237 1237 1567;
  Mul 1567 213 1237; Mul 1568 276 1567; Mul 1557 114 1443; Mul 1493 9 1498; Sub 1557 1557 1493; Mul 1493 8 1463;
  Mul 1449 113 1265; Sub 1493 1493 1449; Sub 1557 1557 1493; Mul 1493 260 1557; Mul 1449 9 1463;
  Mul 1627 113 1443; Add 1449 1449 1627; Mul 1627 8 1498; Mul 1099 114 1265; Add 1627 1627 1099;
  Sub 1449 1449 1627; Mul 1627 263 1449; Add 1493 1493 1627; Mul 1627 265 1493; Mul 1099 8 1256;
  Mul 1386 224 1265; Sub 1099 1099 1386; Mul 1386 9 1595; Mul 1662 228 1443; Add 1386 1386 1662;
  Add 1099 1099 1386; Mul 1386 262 1099; Add 1627 1627 1386; Mul 1386 127 1557; Mul 1662 268 1449;
  Add 1386 1386 1662; Mul 1662 216 1386; Mul 1550 267 1217].
Definition casadi_f0_567 : list instruction := [
  Sub 1662 1662 1550; Add 1627 1627 1662; Mul 1662 135 1658; Mul 1550 95 1171; Add 1662 1662 1550;
  Sub 1627 1627 1662; Mul 1662 102 1256; Mul 1550 108 1217; Sub 1662 1662 1550; Mul 1550 79 1099;
  Mul 1659 8 1595; Mul 1137 228 1265; Sub 1659 1659 1137; Mul 1137 9 1256; Mul 1533 224 1443;
  Add 1137 1137 1533; Sub 1659 1659 1137; Mul 1137 85 1659; Mul 1533 81 1217; Sub 1137 1137 1533;
  Add 1550 1550 1137; Add 1550 1662 1550; Mul 1137 269 1550; Mul 1137 275 1137; Mul 1533 79 1557;
  Mul 1060 85 1449; Add 1533 1533 1060; Mul 1060 102 1463; Sub 1533 1533 1060; Mul 1481 272 1533;
  Add 1137 1137 1481; Sub 1137 1627 1137; Mul 1481 258 1137; Add 1440 1568 1481; Mul 1179 254 1099;
  Mul 1632 265 1692; Add 1179 1179 1632; Mul 1632 216 1448; Mul 1582 259 1217; Sub 1632 1632 1582;
  Mul 1582 257 1659; Mul 1113 273 1170; Add 1582 1582 1113; Add 1632 1632 1582; Add 1179 1179 1632;
  Mul 1632 213 1179; Mul 1582 284 1632; Mul 1113 253 1493; Mul 1663 262 1658; Add 1113 1113 1663;
  Mul 1386 215 1386; Mul 1663 267 1171; Add 1386 1386 1663; Sub 1113 1113 1386; Mul 1386 95 1217;
  Mul 1663 135 1099; Add 1386 1386 1663; Add 1113 1113 1386; Mul 1386 79 1658; Mul 1663 85 1198;
  Mul 1469 81 1171; Sub 1663 1663 1469; Add 1386 1386 1663; Mul 1663 102 1434; Mul 1469 108 1171;
  Add 1663 1663 1469; Sub 1386 1386 1663; Mul 1469 269 1386; Mul 1552 275 1469; Mul 1321 283 1533;
  Add 1552 1552 1321; Sub 1552 1113 1552; Mul 1321 279 1552; Add 1224 1582 1321; Sub 1292 1440 1224;
  Mul 1574 292 1533; Mul 1689 288 1449; Mul 1688 287 1443; Mul 1602 108 1285; Mul 1258 9 1602;
  Add 1688 1688 1258; Mul 1258 102 1483; Mul 1380 108 1389; Add 1258 1258 1380; Mul 1380 8 1258;
  Mul 1644 289 1265; Sub 1380 1380 1644; Sub 1688 1688 1380; Mul 1380 264 1688; Add 1689 1689 1380;
  Mul 1380 291 1557; Mul 1602 8 1602; Mul 1644 287 1265; Sub 1602 1602 1644; Mul 1644 289 1443; Mul 1258 9 1258;
  Add 1644 1644 1258; Add 1602 1602 1644; Mul 1644 261 1602; Add 1380 1380 1644; Sub 1689 1689 1380;
  Mul 1380 281 1179; Mul 1644 278 1663; Sub 1380 1380 1644; Mul 1644 255 1662; Mul 1258 270 1237;
  Add 1644 1644 1258; Sub 1380 1380 1644; Add 1689 1689 1380; Mul 1380 213 1689; Mul 1380 269 1380;
  Mul 1644 275 1380; Add 1258 1574 1644; Mul 1676 288 1198; Mul 1412 256 1688; Add 1676 1676 1412;
  Mul 1412 295 1171; Mul 1343 102 1285; Mul 1151 215 1343; Add 1412 1412 1151; Sub 1676 1676 1412;
  Mul 1412 291 1658; Mul 1151 253 1602; Add 1412 1412 1151; Sub 1676 1676 1412; Mul 1412 296 1662;
  Mul 1151 254 1557; Mul 1022 261 1692; Add 1151 1151 1022; Mul 1022 257 1449; Mul 1453 264 1170;
  Add 1022 1022 1453; Add 1151 1151 1022; Mul 1022 270 1151; Add 1412 1412 1022; Mul 1022 274 1179;
  Mul 1453 278 1060; Sub 1022 1022 1453; Sub 1412 1412 1022; Add 1676 1676 1412; Mul 1412 213 1676;
  Mul 1412 269 1412; Mul 1022 282 1412; Mul 1453 297 1386; Add 1605 1022 1453; Mul 1628 216 1343;
  Mul 1685 295 1217; Sub 1628 1628 1685; Mul 1685 288 1659].
Definition casadi_f0_568 : list instruction := [
  Mul 1289 273 1688; Add 1685 1685 1289; Add 1628 1628 1685; Mul 1685 291 1099; Mul 1289 265 1602;
  Add 1685 1685 1289; Sub 1628 1628 1685; Mul 1685 274 1237; Mul 1289 255 1060; Sub 1685 1685 1289;
  Mul 1289 281 1151; Mul 1547 296 1663; Sub 1289 1289 1547; Sub 1685 1685 1289; Add 1628 1628 1685;
  Mul 1685 213 1628; Mul 1685 269 1685; Mul 1289 271 1685; Mul 1547 300 1550; Add 1460 1289 1547;
  Add 1644 1644 1574; Add 1574 1460 1644; Add 1605 1605 1574; Sub 1042 1258 1605; Add 1453 1453 1022;
  Add 1547 1547 1289; Add 1258 1547 1258; Add 1453 1453 1258; Sub 1644 1644 1453; Add 1042 1042 1644;
  Add 1321 1321 1582; Add 1481 1481 1568; Sub 1568 1321 1481; Add 1042 1042 1568; Sub 1292 1292 1042;
  Mul 1042 66 1658; Mul 1568 253 1377; Sub 1042 1042 1568; Mul 1568 53 1198; Mul 1582 256 1382;
  Add 1568 1568 1582; Sub 1042 1042 1568; Mul 1568 308 1042; Mul 1582 66 1692; Mul 1644 254 1377;
  Sub 1582 1582 1644; Mul 1644 257 1382; Mul 1289 53 1170; Add 1644 1644 1289; Sub 1582 1582 1644;
  Mul 1644 304 1582; Add 1568 1568 1644; Mul 1644 53 1658; Mul 1289 253 1382; Add 1644 1644 1289;
  Mul 1289 66 1198; Mul 1022 256 1377; Sub 1289 1289 1022; Add 1644 1644 1289; Mul 1289 311 1644;
  Mul 1022 254 1382; Mul 1664 53 1692; Add 1022 1022 1664; Mul 1664 66 1170; Mul 1648 257 1377;
  Sub 1664 1664 1648; Add 1022 1022 1664; Mul 1664 310 1022; Add 1289 1289 1664; Mul 1664 313 1171;
  Add 1648 1253 1448; Mul 1181 215 1648; Add 1664 1664 1181; Sub 1289 1289 1664; Add 1568 1568 1289;
  Mul 1289 213 1568; Mul 1664 330 1289; Mul 1181 66 1557; Mul 1365 261 1377; Sub 1181 1181 1365;
  Mul 1365 53 1449; Mul 1034 264 1382; Add 1365 1365 1034; Sub 1181 1181 1365; Mul 1365 314 1181;
  Mul 1034 53 1557; Mul 1473 261 1382; Add 1034 1034 1473; Mul 1473 66 1449; Mul 1203 264 1377;
  Sub 1473 1473 1203; Add 1034 1034 1473; Mul 1473 317 1034; Add 1365 1365 1473; Mul 1473 319 1365;
  Mul 1203 66 1099; Mul 1609 265 1377; Sub 1203 1203 1609; Mul 1609 53 1659; Mul 1447 273 1382;
  Add 1609 1609 1447; Sub 1203 1203 1609; Mul 1609 316 1203; Add 1473 1473 1609; Mul 1609 128 1181;
  Mul 1447 322 1034; Add 1609 1609 1447; Mul 1447 216 1609; Mul 1507 321 1217; Sub 1447 1447 1507;
  Add 1473 1473 1447; Mul 1447 131 1042; Mul 1507 68 1171; Add 1447 1447 1507; Sub 1473 1473 1447;
  Mul 1447 91 1099; Mul 1507 86 1659; Add 1447 1447 1507; Add 1447 1662 1447; Mul 1507 61 1203;
  Mul 1320 53 1099; Mul 1082 265 1382; Add 1320 1320 1082; Mul 1082 66 1659; Mul 1653 273 1377;
  Sub 1082 1082 1653; Add 1320 1320 1082; Mul 1082 54 1320; Mul 1653 47 1217; Sub 1082 1082 1653;
  Add 1507 1507 1082; Add 1507 1447 1507; Mul 1082 323 1507; Mul 1082 329 1082; Mul 1653 91 1557;
  Mul 1449 86 1449; Add 1653 1653 1449; Sub 1653 1653 1060; Mul 1449 61 1181; Mul 1660 54 1034;
  Add 1449 1449 1660; Add 1449 1653 1449; Mul 1660 326 1449; Add 1082 1082 1660; Sub 1082 1473 1082;
  Mul 1660 312 1082; Add 1150 1664 1660; Mul 1205 308 1203; Mul 1398 319 1582].
Definition casadi_f0_569 : list instruction := [
  Add 1205 1205 1398; Mul 1398 216 1648; Mul 1316 313 1217; Sub 1398 1398 1316; Mul 1316 311 1320;
  Mul 1017 327 1022; Add 1316 1316 1017; Add 1398 1398 1316; Add 1205 1205 1398; Mul 1398 213 1205;
  Mul 1316 338 1398; Mul 1017 304 1365; Mul 1219 316 1042; Add 1017 1017 1219; Mul 1609 215 1609;
  Mul 1219 321 1171; Add 1609 1609 1219; Sub 1017 1017 1609; Mul 1609 68 1217; Mul 1219 131 1203;
  Add 1609 1609 1219; Add 1017 1017 1609; Mul 1609 91 1658; Mul 1198 86 1198; Add 1609 1609 1198;
  Sub 1609 1609 1663; Mul 1198 61 1042; Mul 1219 54 1644; Mul 1411 47 1171; Sub 1219 1219 1411;
  Add 1198 1198 1219; Add 1198 1609 1198; Mul 1219 323 1198; Mul 1411 329 1219; Mul 1133 337 1449;
  Add 1411 1411 1133; Sub 1411 1017 1411; Mul 1133 333 1411; Add 1548 1316 1133; Sub 1515 1150 1548;
  Mul 1384 346 1449; Mul 1655 342 1181; Mul 1535 86 1448; Sub 1535 1535 1602; Mul 1602 66 1535;
  Mul 1312 341 1377; Sub 1602 1602 1312; Mul 1312 343 1382; Mul 1448 91 1448; Sub 1688 1688 1448;
  Mul 1448 53 1688; Add 1312 1312 1448; Sub 1602 1602 1312; Mul 1312 315 1602; Add 1655 1655 1312;
  Mul 1312 345 1034; Mul 1448 341 1382; Mul 1535 53 1535; Add 1448 1448 1535; Mul 1688 66 1688;
  Mul 1535 343 1377; Sub 1688 1688 1535; Add 1448 1448 1688; Mul 1688 318 1448; Add 1312 1312 1688;
  Add 1655 1655 1312; Mul 1312 332 1609; Mul 1688 335 1205; Add 1312 1312 1688; Mul 1688 309 1447;
  Mul 1535 324 1568; Add 1688 1688 1535; Sub 1312 1312 1688; Add 1655 1655 1312; Mul 1312 213 1655;
  Mul 1312 323 1312; Mul 1688 329 1312; Add 1535 1384 1688; Mul 1147 342 1042; Mul 1607 304 1602;
  Add 1147 1147 1607; Mul 1607 345 1644; Mul 1695 310 1448; Add 1607 1607 1695; Mul 1695 350 1171;
  Mul 1692 86 1692; Mul 1170 91 1170; Sub 1692 1692 1170; Sub 1343 1343 1692; Mul 1692 215 1343;
  Add 1695 1695 1692; Sub 1607 1607 1695; Add 1147 1147 1607; Mul 1607 349 1447; Mul 1695 308 1181;
  Mul 1692 315 1582; Add 1695 1695 1692; Mul 1692 311 1034; Mul 1170 318 1022; Add 1692 1692 1170;
  Add 1695 1695 1692; Mul 1692 324 1695; Add 1607 1607 1692; Mul 1692 332 1653; Mul 1170 328 1205;
  Add 1692 1692 1170; Sub 1607 1607 1692; Add 1147 1147 1607; Mul 1607 213 1147; Mul 1607 323 1607;
  Mul 1692 336 1607; Mul 1170 351 1198; Add 1362 1692 1170; Mul 1167 342 1203; Mul 1287 319 1602;
  Add 1167 1167 1287; Mul 1287 216 1343; Mul 1438 350 1217; Sub 1287 1287 1438; Mul 1438 345 1320;
  Mul 1556 327 1448; Add 1438 1438 1556; Add 1287 1287 1438; Add 1167 1167 1287; Mul 1287 309 1653;
  Mul 1438 328 1568; Add 1287 1287 1438; Mul 1438 349 1609; Mul 1556 335 1695; Add 1438 1438 1556;
  Sub 1287 1287 1438; Add 1167 1167 1287; Mul 1287 213 1167; Mul 1287 323 1287; Mul 1438 325 1287;
  Mul 1556 354 1507; Add 1340 1438 1556; Add 1688 1688 1384; Add 1384 1340 1688; Add 1362 1362 1384;
  Sub 1651 1535 1362; Add 1170 1170 1692; Add 1556 1556 1438; Add 1535 1556 1535; Add 1170 1170 1535;
  Sub 1688 1688 1170; Add 1651 1651 1688; Add 1133 1133 1316; Add 1660 1660 1664].
Definition casadi_f0_570 : list instruction := [
  Sub 1664 1133 1660; Add 1651 1651 1664; Sub 1515 1515 1651; Mul 1651 19 1042; Mul 1664 304 1408;
  Sub 1651 1651 1664; Mul 1664 35 1171; Mul 1316 215 1201; Add 1664 1664 1316; Add 1651 1651 1664;
  Mul 1664 362 1651; Mul 1316 19 1582; Mul 1688 308 1408; Sub 1316 1316 1688; Mul 1688 313 1201;
  Mul 1438 35 1648; Add 1688 1688 1438; Sub 1316 1316 1688; Mul 1688 358 1316; Add 1664 1664 1688;
  Mul 1688 35 1042; Mul 1438 304 1201; Add 1688 1688 1438; Mul 1438 19 1171; Mul 1692 215 1408;
  Sub 1438 1438 1692; Sub 1688 1688 1438; Mul 1438 365 1688; Mul 1692 308 1201; Mul 1571 35 1582;
  Add 1692 1692 1571; Mul 1571 19 1648; Mul 1586 313 1408; Sub 1571 1571 1586; Add 1692 1692 1571;
  Mul 1571 364 1692; Add 1438 1438 1571; Mul 1571 367 1644; Sub 1586 1022 1355; Mul 1194 310 1586;
  Add 1571 1571 1194; Add 1438 1438 1571; Add 1664 1664 1438; Mul 1438 213 1664; Mul 1571 385 1438;
  Mul 1194 19 1181; Mul 1363 315 1408; Sub 1194 1194 1363; Mul 1363 368 1194; Mul 1156 35 1181;
  Mul 1037 315 1201; Add 1156 1156 1037; Mul 1037 39 1156; Mul 1250 373 1034; Add 1037 1037 1250;
  Add 1363 1363 1037; Mul 1037 372 1363; Mul 1250 19 1203; Mul 1238 319 1408; Sub 1250 1250 1238;
  Mul 1238 216 1201; Mul 1432 35 1217; Sub 1238 1238 1432; Sub 1250 1250 1238; Mul 1238 370 1250;
  Add 1037 1037 1238; Mul 1238 39 1194; Mul 1432 376 1156; Add 1238 1238 1432; Mul 1432 377 1238;
  Mul 1368 35 1203; Mul 1310 319 1201; Add 1368 1368 1310; Mul 1310 19 1217; Mul 1503 216 1408;
  Add 1310 1310 1503; Sub 1368 1368 1310; Mul 1310 375 1368; Add 1432 1432 1310; Add 1037 1037 1432;
  Mul 1432 69 1688; Add 1037 1037 1432; Mul 1432 62 1203; Mul 1310 55 1320; Mul 1503 48 1217;
  Sub 1310 1310 1503; Add 1432 1432 1310; Add 1432 1447 1432; Mul 1310 380 1250; Mul 1503 24 1368;
  Mul 1196 31 1320; Add 1503 1503 1196; Add 1310 1310 1503; Add 1310 1432 1310; Mul 1503 378 1310;
  Mul 1503 384 1503; Mul 1196 62 1181; Mul 1466 55 1034; Add 1196 1196 1466; Add 1196 1653 1196;
  Mul 1466 380 1194; Mul 1103 24 1156; Mul 1510 31 1034; Add 1103 1103 1510; Add 1466 1466 1103;
  Add 1466 1196 1466; Mul 1103 382 1466; Add 1503 1503 1103; Sub 1503 1037 1503; Mul 1103 366 1503;
  Add 1510 1571 1103; Mul 1297 362 1250; Mul 1527 372 1316; Add 1297 1297 1527; Mul 1527 365 1368;
  Mul 1391 377 1692; Add 1527 1527 1391; Mul 1391 367 1320; Mul 1401 327 1586; Add 1391 1391 1401;
  Add 1527 1527 1391; Add 1297 1297 1527; Mul 1527 213 1297; Mul 1391 393 1527; Mul 1401 358 1363;
  Mul 1546 370 1651; Add 1401 1401 1546; Mul 1546 364 1238; Mul 1700 375 1688; Add 1546 1546 1700;
  Add 1401 1401 1546; Mul 1546 69 1368; Sub 1401 1401 1546; Mul 1546 62 1042; Mul 1700 55 1644;
  Mul 1650 48 1171; Sub 1700 1700 1650; Add 1546 1546 1700; Add 1546 1609 1546; Mul 1700 380 1651;
  Mul 1650 24 1688; Mul 1252 31 1644; Add 1650 1650 1252; Add 1700 1700 1650; Add 1700 1546 1700;
  Mul 1650 378 1700; Mul 1252 384 1650; Mul 1190 392 1466; Add 1252 1252 1190].
Definition casadi_f0_571 : list instruction := [
  Sub 1252 1401 1252; Mul 1190 388 1252; Add 1228 1391 1190; Sub 1105 1510 1228; Mul 1350 401 1466;
  Mul 1680 397 1194; Mul 1139 48 1022; Mul 1183 55 1648; Sub 1139 1139 1183; Sub 1602 1602 1139;
  Mul 1139 19 1602; Mul 1183 396 1408; Sub 1139 1139 1183; Mul 1183 398 1201; Mul 1506 55 1582;
  Mul 1022 62 1022; Sub 1506 1506 1022; Sub 1343 1343 1506; Mul 1506 35 1343; Add 1183 1183 1506;
  Sub 1139 1139 1183; Mul 1183 369 1139; Add 1680 1680 1183; Mul 1183 400 1156; Mul 1506 396 1201;
  Mul 1602 35 1602; Add 1506 1506 1602; Mul 1343 19 1343; Mul 1602 398 1408; Sub 1343 1343 1602;
  Add 1506 1506 1343; Mul 1343 371 1506; Add 1183 1183 1343; Mul 1343 402 1034; Mul 1648 62 1648;
  Mul 1582 48 1582; Sub 1648 1648 1582; Sub 1448 1448 1648; Mul 1648 318 1448; Add 1343 1343 1648;
  Add 1183 1183 1343; Add 1680 1680 1183; Mul 1183 387 1546; Mul 1343 390 1297; Add 1183 1183 1343;
  Mul 1343 363 1432; Mul 1648 379 1664; Add 1343 1343 1648; Sub 1183 1183 1343; Add 1680 1680 1183;
  Mul 1183 213 1680; Mul 1183 378 1183; Mul 1343 384 1183; Add 1648 1350 1343; Mul 1582 397 1651;
  Mul 1602 358 1139; Add 1582 1582 1602; Mul 1602 400 1688; Mul 1022 364 1506; Add 1602 1602 1022;
  Mul 1022 402 1644; Mul 1241 310 1448; Add 1022 1022 1241; Add 1602 1602 1022; Add 1582 1582 1602;
  Mul 1602 405 1432; Mul 1022 362 1194; Mul 1241 369 1316; Add 1022 1022 1241; Mul 1241 365 1156;
  Mul 1562 371 1692; Add 1241 1241 1562; Mul 1562 367 1034; Mul 1471 318 1586; Add 1562 1562 1471;
  Add 1241 1241 1562; Add 1022 1022 1241; Mul 1241 379 1022; Add 1602 1602 1241; Mul 1241 387 1196;
  Mul 1562 383 1297; Add 1241 1241 1562; Sub 1602 1602 1241; Add 1582 1582 1602; Mul 1602 213 1582;
  Mul 1602 378 1602; Mul 1241 391 1602; Mul 1562 406 1700; Add 1471 1241 1562; Mul 1345 397 1250;
  Mul 1303 372 1139; Add 1345 1345 1303; Mul 1303 400 1368; Mul 1280 377 1506; Add 1303 1303 1280;
  Mul 1280 402 1320; Mul 1583 327 1448; Add 1280 1280 1583; Add 1303 1303 1280; Add 1345 1345 1303;
  Mul 1303 363 1196; Mul 1280 383 1664; Add 1303 1303 1280; Mul 1280 405 1546; Mul 1583 390 1022;
  Add 1280 1280 1583; Sub 1303 1303 1280; Add 1345 1345 1303; Mul 1303 213 1345; Mul 1303 378 1303;
  Mul 1280 381 1303; Mul 1583 409 1310; Add 1409 1280 1583; Add 1343 1343 1350; Add 1350 1409 1343;
  Add 1471 1471 1350; Sub 1055 1648 1471; Add 1562 1562 1241; Add 1583 1583 1280; Add 1648 1583 1648;
  Add 1562 1562 1648; Sub 1343 1343 1562; Add 1055 1055 1343; Add 1190 1190 1391; Add 1103 1103 1571;
  Sub 1571 1190 1103; Add 1055 1055 1571; Sub 1105 1105 1055; Mul 1055 413 1651; Sub 1571 1316 1514;
  Mul 1391 358 1571; Add 1055 1055 1391; Mul 1391 16 1688; Mul 1343 364 1521; Sub 1391 1391 1343;
  Mul 1343 15 1644; Mul 1280 310 1100; Add 1343 1343 1280; Sub 1391 1391 1343; Mul 1343 419 1391;
  Mul 1280 16 1692; Mul 1241 365 1521; Sub 1280 1280 1241; Mul 1241 367 1100; Mul 1406 15 1586;
  Add 1241 1241 1406; Sub 1280 1280 1241; Mul 1241 418 1280; Add 1343 1343 1241].
Definition casadi_f0_572 : list instruction := [
  Mul 1241 15 1688; Mul 1406 364 1100; Add 1241 1241 1406; Mul 1406 16 1644; Mul 1458 310 1521;
  Sub 1406 1406 1458; Add 1241 1241 1406; Mul 1406 422 1241; Mul 1458 365 1100; Mul 1611 15 1692;
  Add 1458 1458 1611; Mul 1611 16 1586; Mul 1465 367 1521; Sub 1611 1611 1465; Add 1458 1458 1611;
  Mul 1611 421 1458; Add 1406 1406 1611; Add 1343 1343 1406; Add 1055 1055 1343; Mul 1343 213 1055;
  Mul 1406 439 1343; Mul 1611 423 1194; Mul 1465 16 1156; Mul 1200 371 1521; Sub 1465 1465 1200;
  Mul 1200 15 1034; Mul 1129 318 1100; Add 1200 1200 1129; Sub 1465 1465 1200; Mul 1200 40 1465;
  Mul 1129 15 1156; Mul 1164 371 1100; Add 1129 1129 1164; Mul 1164 16 1034; Mul 1330 318 1521;
  Sub 1164 1164 1330; Add 1129 1129 1164; Mul 1164 42 1129; Add 1200 1200 1164; Add 1611 1611 1200;
  Mul 1200 372 1611; Mul 1164 424 1250; Add 1200 1200 1164; Mul 1164 40 1194; Mul 1330 14 1465;
  Mul 1464 18 1129; Add 1330 1330 1464; Add 1164 1164 1330; Mul 1330 429 1164; Mul 1464 16 1368;
  Mul 1427 377 1521; Sub 1464 1464 1427; Mul 1427 15 1320; Mul 1096 327 1100; Add 1427 1427 1096;
  Sub 1464 1464 1427; Mul 1427 428 1464; Add 1330 1330 1427; Add 1200 1200 1330; Mul 1330 43 1391;
  Mul 1427 431 1651; Sub 1330 1330 1427; Add 1200 1200 1330; Mul 1330 198 1250; Mul 1427 25 1368;
  Mul 1096 32 1320; Add 1427 1427 1096; Add 1330 1330 1427; Add 1330 1432 1330; Mul 1427 433 1250;
  Mul 1096 26 1464; Mul 1454 15 1368; Mul 1544 377 1100; Add 1454 1454 1544; Mul 1544 16 1320;
  Mul 1090 327 1521; Sub 1544 1544 1090; Add 1454 1454 1544; Mul 1544 28 1454; Add 1096 1096 1544;
  Add 1427 1427 1096; Add 1427 1330 1427; Mul 1096 430 1427; Mul 1096 438 1096; Mul 1544 198 1194;
  Mul 1090 25 1156; Mul 1599 32 1034; Add 1090 1090 1599; Add 1544 1544 1090; Add 1544 1196 1544;
  Mul 1090 433 1194; Mul 1599 26 1465; Mul 1633 28 1129; Add 1599 1599 1633; Add 1090 1090 1599;
  Add 1090 1544 1090; Mul 1599 435 1090; Add 1096 1096 1599; Sub 1096 1200 1096; Mul 1599 420 1096;
  Add 1633 1406 1599; Mul 1074 413 1250; Mul 1394 372 1571; Add 1074 1074 1394; Mul 1394 419 1464;
  Mul 1455 429 1280; Add 1394 1394 1455; Mul 1455 422 1454; Mul 1086 436 1458; Add 1455 1455 1086;
  Add 1394 1394 1455; Add 1074 1074 1394; Mul 1394 213 1074; Mul 1455 447 1394; Mul 1086 358 1611;
  Mul 1119 424 1651; Add 1086 1086 1119; Mul 1119 418 1164; Mul 1617 428 1391; Add 1119 1119 1617;
  Add 1086 1086 1119; Mul 1119 43 1464; Mul 1617 431 1250; Sub 1119 1119 1617; Sub 1086 1086 1119;
  Mul 1119 198 1651; Mul 1617 25 1688; Mul 1127 32 1644; Add 1617 1617 1127; Add 1119 1119 1617;
  Add 1119 1546 1119; Mul 1617 433 1651; Mul 1127 26 1391; Mul 1603 28 1241; Add 1127 1127 1603;
  Add 1617 1617 1127; Add 1617 1119 1617; Mul 1127 430 1617; Mul 1603 438 1127; Mul 1088 446 1090;
  Add 1603 1603 1088; Sub 1603 1086 1603; Mul 1088 442 1603; Add 1232 1455 1088; Sub 1579 1633 1232;
  Mul 1247 455 1090; Mul 1140 450 1194; Mul 1352 25 1586; Mul 1645 32 1692].
Definition casadi_f0_573 : list instruction := [
  Sub 1352 1352 1645; Sub 1139 1139 1352; Mul 1352 369 1139; Add 1140 1140 1352; Mul 1352 453 1465;
  Mul 1645 32 1316; Mul 1586 198 1586; Sub 1645 1645 1586; Sub 1506 1506 1645; Mul 1645 16 1506;
  Mul 1586 452 1521; Sub 1645 1645 1586; Mul 1586 454 1100; Mul 1692 198 1692; Mul 1316 25 1316;
  Sub 1692 1692 1316; Sub 1448 1448 1692; Mul 1692 15 1448; Add 1586 1586 1692; Sub 1645 1645 1586;
  Mul 1586 425 1645; Add 1352 1352 1586; Mul 1586 456 1129; Mul 1692 452 1100; Mul 1506 15 1506;
  Add 1692 1692 1506; Mul 1448 16 1448; Mul 1506 454 1521; Sub 1448 1448 1506; Add 1692 1692 1448;
  Mul 1448 427 1692; Add 1586 1586 1448; Add 1352 1352 1586; Add 1140 1140 1352; Mul 1352 441 1119;
  Mul 1586 444 1074; Add 1352 1352 1586; Mul 1586 417 1330; Mul 1448 432 1055; Add 1586 1586 1448;
  Sub 1352 1352 1586; Add 1140 1140 1352; Mul 1352 213 1140; Mul 1352 430 1352; Mul 1586 438 1352;
  Add 1448 1247 1586; Mul 1506 450 1651; Mul 1316 358 1139; Add 1506 1506 1316; Mul 1316 453 1391;
  Mul 1575 418 1645; Add 1316 1316 1575; Mul 1241 456 1241; Mul 1575 421 1692; Add 1241 1241 1575;
  Add 1316 1316 1241; Add 1506 1506 1316; Mul 1316 459 1330; Mul 1241 413 1194; Mul 1571 369 1571;
  Add 1241 1241 1571; Mul 1571 419 1465; Mul 1280 425 1280; Add 1571 1571 1280; Mul 1129 422 1129;
  Mul 1458 427 1458; Add 1129 1129 1458; Add 1571 1571 1129; Add 1241 1241 1571; Mul 1571 432 1241;
  Add 1316 1316 1571; Mul 1571 441 1544; Mul 1129 437 1074; Add 1571 1571 1129; Sub 1316 1316 1571;
  Add 1506 1506 1316; Mul 1316 213 1506; Mul 1316 430 1316; Mul 1571 445 1316; Mul 1129 460 1617;
  Add 1458 1571 1129; Mul 1280 450 1250; Mul 1139 372 1139; Add 1280 1280 1139; Mul 1139 453 1464;
  Mul 1645 429 1645; Add 1139 1139 1645; Mul 1645 456 1454; Mul 1692 436 1692; Add 1645 1645 1692;
  Add 1139 1139 1645; Add 1280 1280 1139; Mul 1139 417 1544; Mul 1645 437 1055; Add 1139 1139 1645;
  Mul 1645 459 1119; Mul 1692 444 1241; Add 1645 1645 1692; Sub 1139 1139 1645; Add 1280 1280 1139;
  Mul 1139 213 1280; Mul 1139 430 1139; Mul 1645 434 1139; Mul 1692 463 1427; Add 1575 1645 1692;
  Add 1586 1586 1247; Add 1247 1575 1586; Add 1458 1458 1247; Sub 1667 1448 1458; Add 1129 1129 1571;
  Add 1692 1692 1645; Add 1448 1692 1448; Add 1129 1129 1448; Sub 1586 1586 1129; Add 1667 1667 1586;
  Add 1088 1088 1455; Add 1599 1599 1406; Sub 1406 1088 1599; Add 1667 1667 1406; Sub 1579 1579 1667;
  Add 1105 1105 1579; Add 1515 1515 1105; Add 1292 1292 1515; Add 1288 1288 1292; Mul 1288 0 1288;
  Mul 1292 235 1245; Add 1288 1288 1292; Mul 1493 261 1493; Mul 1292 262 1557; Add 1493 1493 1292;
  Mul 1365 315 1365; Mul 1292 316 1181; Add 1365 1365 1292; Mul 1363 369 1363; Mul 1292 370 1194;
  Add 1363 1363 1292; Mul 1238 371 1238; Mul 1292 375 1156; Add 1238 1238 1292; Add 1363 1363 1238;
  Mul 1611 369 1611; Mul 1238 424 1194; Add 1611 1611 1238; Mul 1164 425 1164; Mul 1238 428 1465;
  Add 1164 1164 1238; Add 1611 1611 1164; Add 1164 1363 1611; Sub 1238 1700 1617].
Definition casadi_f0_574 : list instruction := [
  Mul 1292 480 1238; Sub 1515 1310 1427; Mul 1667 1197 1515; Add 1406 1292 1667; Mul 1406 20 1406;
  Add 1164 1164 1406; Add 1406 1365 1164; Mul 1455 485 1700; Mul 1586 50 1617; Add 1455 1455 1586;
  Sub 1586 1198 1455; Mul 1645 487 1586; Mul 1571 485 1310; Mul 1482 50 1427; Add 1571 1571 1482;
  Sub 1482 1507 1571; Mul 1107 1286 1482; Add 1148 1645 1107; Mul 1148 37 1148; Add 1406 1406 1148;
  Add 1148 1493 1406; Mul 1049 493 1198; Mul 1191 83 1455; Add 1049 1049 1191; Sub 1191 1386 1049;
  Mul 1302 495 1191; Mul 1417 493 1507; Mul 1207 83 1571; Add 1417 1417 1207; Sub 1207 1550 1417;
  Mul 1277 1294 1207; Add 1335 1302 1277; Mul 1335 80 1335; Add 1148 1148 1335; Mul 1335 237 1463;
  Mul 1588 113 1588; Sub 1335 1335 1588; Sub 1588 1148 1335; Mul 1077 501 1550; Mul 1620 104 1417;
  Add 1077 1077 1620; Sub 1620 1110 1077; Mul 1231 1299 1620; Mul 1327 501 1386; Mul 1358 104 1049;
  Add 1327 1327 1358; Add 1358 1215 1327; Mul 1461 503 1358; Sub 1248 1231 1461; Mul 1248 100 1248;
  Add 1588 1588 1248; Mul 1588 508 1588; Mul 1248 216 1180; Mul 1697 219 1217; Sub 1248 1248 1697;
  Mul 1697 215 1079; Mul 1132 227 1171; Add 1697 1697 1132; Add 1248 1248 1697; Mul 1697 500 1248;
  Add 1588 1588 1697; Add 1697 1401 1086; Mul 1238 20 1238; Mul 1132 512 1238; Sub 1505 1466 1090;
  Mul 1376 511 1505; Add 1132 1132 1376; Sub 1697 1697 1132; Add 1132 1017 1697; Mul 1586 37 1586;
  Mul 1376 516 1586; Mul 1143 485 1466; Mul 1638 50 1090; Add 1143 1143 1638; Sub 1638 1449 1143;
  Mul 1419 514 1638; Add 1376 1376 1419; Sub 1132 1132 1376; Add 1376 1113 1132; Mul 1191 80 1191;
  Mul 1419 520 1191; Mul 1654 493 1449; Mul 1520 83 1143; Add 1654 1654 1520; Sub 1520 1533 1654;
  Mul 1698 518 1520; Add 1419 1419 1698; Sub 1376 1376 1419; Add 1419 1690 1376; Mul 1358 100 1358;
  Mul 1698 524 1358; Mul 1642 501 1533; Mul 1554 104 1654; Add 1642 1642 1554; Add 1554 1243 1642;
  Mul 1441 522 1554; Add 1698 1698 1441; Add 1419 1419 1698; Mul 1698 526 1419; Mul 1441 221 1463;
  Mul 1389 113 1389; Add 1441 1441 1389; Mul 1285 114 1285; Mul 1389 218 1498; Sub 1285 1285 1389;
  Add 1441 1441 1285; Mul 1285 216 1441; Mul 1389 525 1217; Sub 1285 1285 1389; Mul 1389 521 1285;
  Add 1698 1698 1389; Add 1389 1037 1200; Mul 1349 20 1515; Mul 1349 512 1349; Mul 1444 529 1505;
  Add 1349 1349 1444; Sub 1389 1389 1349; Add 1349 1473 1389; Mul 1444 37 1482; Mul 1444 516 1444;
  Mul 1657 531 1638; Add 1444 1444 1657; Sub 1349 1349 1444; Add 1444 1627 1349; Mul 1657 80 1207;
  Mul 1657 520 1657; Mul 1587 533 1520; Add 1657 1657 1587; Sub 1444 1444 1657; Add 1657 1051 1444;
  Mul 1587 100 1620; Mul 1587 524 1587; Mul 1589 535 1554; Sub 1587 1587 1589; Sub 1657 1657 1587;
  Mul 1587 536 1657; Mul 1589 215 1441; Mul 1522 525 1171; Add 1589 1589 1522; Mul 1522 534 1589;
  Add 1587 1587 1522; Add 1698 1698 1587; Sub 1588 1588 1698; Mul 1698 120 1327; Mul 1587 527 1215;
  Sub 1698 1698 1587; Mul 1587 539 1698; Mul 1522 120 1642; Mul 1301 527 1243].
Definition casadi_f0_575 : list instruction := [
  Sub 1522 1522 1301; Mul 1301 526 1522; Mul 1383 538 1285; Add 1301 1301 1383; Mul 1383 508 1698;
  Mul 1495 537 1248; Add 1383 1383 1495; Add 1301 1301 1383; Mul 1383 540 1441; Mul 1495 214 1217;
  Mul 1415 525 1495; Sub 1383 1383 1415; Sub 1301 1301 1383; Mul 1301 141 1301; Mul 1415 537 1301;
  Add 1587 1587 1415; Mul 1415 527 1110; Mul 1538 120 1077; Add 1415 1415 1538; Mul 1538 546 1415;
  Mul 1165 544 1441; Mul 1683 214 1171; Mul 1053 525 1683; Add 1165 1165 1053; Mul 1053 508 1415;
  Mul 1429 543 1248; Add 1053 1053 1429; Mul 1429 536 1522; Mul 1126 538 1589; Add 1429 1429 1126;
  Add 1053 1053 1429; Sub 1053 1165 1053; Mul 1053 141 1053; Mul 1429 543 1053; Add 1538 1538 1429;
  Sub 1587 1587 1538; Add 1588 1588 1587; Mul 1587 553 1392; Mul 1538 238 1256; Mul 1595 236 1595;
  Mul 1429 144 1217; Sub 1595 1595 1429; Add 1538 1538 1595; Mul 1595 224 1538; Mul 1429 542 1256;
  Add 1595 1595 1429; Mul 1256 144 1256; Mul 1429 549 1217; Sub 1256 1256 1429; Mul 1429 216 1256;
  Mul 1126 548 1217; Sub 1429 1429 1126; Add 1595 1595 1429; Mul 1429 1334 1215; Mul 1126 1336 1243;
  Add 1442 1429 1126; Mul 1442 212 1442; Sub 1442 1595 1442; Mul 1098 249 1442; Add 1367 1587 1098;
  Mul 1369 556 1610; Mul 1538 220 1538; Mul 1434 542 1434; Sub 1538 1538 1434; Mul 1256 215 1256;
  Mul 1434 548 1171; Add 1256 1256 1434; Sub 1538 1538 1256; Mul 1256 241 1110; Mul 1270 225 1270;
  Sub 1256 1256 1270; Sub 1256 1538 1256; Mul 1270 244 1256; Add 1434 1369 1270; Sub 1367 1367 1434;
  Mul 1434 242 1347; Mul 1477 223 1243; Sub 1434 1434 1477; Mul 1477 1342 1110; Sub 1429 1477 1429;
  Mul 1429 212 1429; Sub 1429 1429 1335; Mul 1504 249 1429; Mul 1177 551 1392; Add 1517 1504 1177;
  Mul 1117 560 1400; Mul 1445 213 1441; Mul 1071 243 1445; Add 1314 1117 1071; Sub 1517 1517 1314;
  Add 1517 1434 1517; Sub 1367 1367 1517; Sub 1517 1335 1595; Mul 1314 219 1517; Mul 1257 557 1180;
  Add 1314 1314 1257; Mul 1257 227 1538; Mul 1565 555 1079; Add 1257 1257 1565; Add 1314 1314 1257;
  Mul 1257 525 1690; Mul 1565 239 1441; Add 1257 1257 1565; Add 1314 1314 1257; Mul 1257 340 1110;
  Mul 1565 231 1079; Mul 1656 227 1215; Sub 1565 1565 1656; Mul 1656 219 1110; Mul 1539 225 1180;
  Add 1656 1656 1539; Sub 1565 1565 1656; Mul 1565 212 1565; Mul 1656 225 1565; Add 1257 1257 1656;
  Mul 1656 242 1180; Mul 1539 219 1243; Sub 1656 1656 1539; Mul 1539 231 1441; Mul 1608 525 1215;
  Sub 1539 1539 1608; Sub 1656 1656 1539; Sub 1656 1209 1656; Mul 1656 212 1656; Mul 1539 242 1656;
  Mul 1608 559 1243; Sub 1539 1539 1608; Add 1257 1257 1539; Sub 1314 1314 1257; Mul 1314 213 1314;
  Sub 1367 1367 1314; Mul 1257 567 1567; Mul 1539 260 1099; Mul 1608 263 1659; Mul 1341 127 1217;
  Sub 1608 1608 1341; Add 1539 1539 1608; Mul 1608 265 1539; Mul 1341 547 1099; Add 1608 1608 1341;
  Mul 1099 127 1099; Mul 1659 268 1659; Mul 1341 563 1217; Sub 1659 1659 1341; Add 1099 1099 1659;
  Mul 1659 216 1099; Mul 1341 562 1217; Sub 1659 1659 1341; Add 1608 1608 1659].
Definition casadi_f0_576 : list instruction := [
  Mul 1659 1138 1386; Mul 1341 1357 1533; Add 1370 1659 1341; Mul 1370 269 1370; Add 1370 1608 1370;
  Mul 1208 258 1370; Add 1255 1257 1208; Mul 1701 570 1632; Mul 1539 253 1539; Mul 1658 547 1658;
  Add 1539 1539 1658; Mul 1099 215 1099; Mul 1658 562 1171; Add 1099 1099 1658; Sub 1539 1539 1099;
  Mul 1557 135 1557; Sub 1539 1539 1557; Mul 1469 271 1469; Mul 1557 283 1550; Add 1469 1469 1557;
  Sub 1469 1539 1469; Mul 1557 279 1469; Add 1099 1701 1557; Sub 1255 1255 1099; Mul 1099 300 1533;
  Mul 1658 275 1685; Add 1360 1099 1658; Mul 1622 271 1380; Mul 1560 292 1550; Add 1388 1622 1560;
  Add 1360 1360 1388; Mul 1388 1366 1550; Add 1659 1659 1388; Mul 1659 269 1659; Add 1659 1493 1659;
  Mul 1267 258 1659; Mul 1271 565 1567; Add 1188 1267 1271; Mul 1359 574 1552; Mul 1563 213 1151;
  Mul 1084 284 1563; Add 1457 1359 1084; Sub 1188 1188 1457; Add 1360 1360 1188; Sub 1255 1255 1360;
  Mul 1360 571 1237; Add 1188 1608 1493; Mul 1457 255 1188; Sub 1360 1360 1457; Mul 1457 278 1539;
  Mul 1168 569 1179; Add 1457 1457 1168; Add 1360 1360 1457; Mul 1457 296 1113; Mul 1168 280 1151;
  Add 1457 1457 1168; Add 1360 1360 1457; Mul 1457 471 1550; Mul 1168 278 1386; Mul 1621 282 1179;
  Add 1168 1168 1621; Mul 1621 255 1550; Mul 1566 271 1237; Add 1621 1621 1566; Sub 1168 1168 1621;
  Sub 1168 1689 1168; Mul 1168 269 1168; Mul 1621 271 1168; Add 1457 1457 1621; Mul 1621 573 1533;
  Mul 1566 255 1533; Mul 1172 275 1237; Add 1566 1566 1172; Mul 1172 296 1386; Mul 1489 282 1151;
  Add 1172 1172 1489; Sub 1566 1566 1172; Sub 1566 1628 1566; Mul 1566 269 1566; Mul 1172 275 1566;
  Add 1621 1621 1172; Sub 1457 1457 1621; Add 1360 1360 1457; Mul 1360 213 1360; Sub 1255 1255 1360;
  Mul 1457 581 1289; Mul 1621 314 1203; Mul 1172 317 1320; Mul 1489 128 1217; Sub 1172 1172 1489;
  Add 1621 1621 1172; Mul 1172 319 1621; Mul 1489 561 1203; Add 1172 1172 1489; Mul 1203 128 1203;
  Mul 1489 322 1320; Mul 1580 577 1217; Sub 1489 1489 1580; Add 1203 1203 1489; Mul 1489 216 1203;
  Mul 1580 576 1217; Sub 1489 1489 1580; Add 1172 1172 1489; Mul 1489 1379 1198; Mul 1580 1381 1449;
  Add 1577 1489 1580; Mul 1577 323 1577; Add 1577 1172 1577; Mul 1274 312 1577; Add 1162 1457 1274;
  Mul 1525 584 1398; Mul 1621 304 1621; Mul 1042 561 1042; Add 1621 1621 1042; Mul 1203 215 1203;
  Mul 1042 576 1171; Add 1203 1203 1042; Sub 1621 1621 1203; Mul 1181 131 1181; Sub 1621 1621 1181;
  Mul 1219 325 1219; Mul 1181 337 1507; Add 1219 1219 1181; Sub 1219 1621 1219; Mul 1181 333 1219;
  Add 1203 1525 1181; Sub 1162 1162 1203; Mul 1203 354 1449; Mul 1042 329 1287; Add 1572 1203 1042;
  Mul 1666 325 1312; Mul 1315 346 1507; Add 1272 1666 1315; Add 1572 1572 1272; Mul 1272 1390 1507;
  Add 1489 1489 1272; Mul 1489 323 1489; Add 1489 1365 1489; Mul 1187 312 1489; Mul 1425 579 1289;
  Add 1279 1187 1425; Mul 1584 588 1411; Mul 1229 213 1695; Mul 1210 338 1229; Add 1665 1584 1210;
  Sub 1279 1279 1665; Add 1572 1572 1279; Sub 1162 1162 1572; Mul 1572 585 1568].
Definition casadi_f0_577 : list instruction := [
  Add 1279 1172 1365; Mul 1665 309 1279; Sub 1572 1572 1665; Mul 1665 332 1621; Mul 1555 583 1205;
  Add 1665 1665 1555; Add 1572 1572 1665; Mul 1665 349 1017; Mul 1555 334 1695; Add 1665 1665 1555;
  Add 1572 1572 1665; Mul 1665 473 1507; Mul 1555 332 1198; Mul 1097 336 1205; Add 1555 1555 1097;
  Mul 1097 309 1507; Mul 1373 325 1568; Add 1097 1097 1373; Sub 1555 1555 1097; Sub 1555 1655 1555;
  Mul 1555 323 1555; Mul 1097 325 1555; Add 1665 1665 1097; Mul 1097 587 1449; Mul 1373 309 1449;
  Mul 1529 329 1568; Add 1373 1373 1529; Mul 1529 349 1198; Mul 1524 336 1695; Add 1529 1529 1524;
  Sub 1373 1373 1529; Sub 1373 1167 1373; Mul 1373 323 1373; Mul 1529 329 1373; Add 1097 1097 1529;
  Sub 1665 1665 1097; Add 1572 1572 1665; Mul 1572 213 1572; Sub 1162 1162 1572; Mul 1665 594 1438;
  Mul 1097 368 1250; Mul 1529 39 1368; Mul 1524 373 1320; Add 1529 1529 1524; Add 1097 1097 1529;
  Mul 1529 372 1097; Mul 1524 575 1250; Add 1529 1529 1524; Mul 1524 39 1250; Mul 1211 376 1368;
  Add 1524 1524 1211; Mul 1211 377 1524; Mul 1368 590 1368; Add 1211 1211 1368; Add 1529 1529 1211;
  Mul 1211 1404 1700; Mul 1368 1405 1466; Add 1433 1211 1368; Mul 1433 378 1433; Add 1433 1529 1433;
  Mul 1338 366 1433; Add 1528 1665 1338; Mul 1536 597 1527; Mul 1097 358 1097; Mul 1647 575 1651;
  Add 1097 1097 1647; Mul 1524 364 1524; Mul 1688 590 1688; Add 1524 1524 1688; Add 1097 1097 1524;
  Mul 1156 69 1156; Add 1097 1097 1156; Mul 1650 381 1650; Mul 1156 392 1310; Add 1650 1650 1156;
  Sub 1650 1097 1650; Mul 1156 388 1650; Add 1524 1536 1156; Sub 1528 1528 1524; Mul 1524 409 1466;
  Mul 1688 384 1303; Add 1647 1524 1688; Mul 1378 381 1183; Mul 1204 401 1310; Add 1348 1378 1204;
  Add 1647 1647 1348; Mul 1348 1414 1310; Add 1211 1211 1348; Mul 1211 378 1211; Add 1211 1363 1211;
  Mul 1480 366 1211; Mul 1094 592 1438; Add 1526 1480 1094; Mul 1509 601 1252; Mul 1149 213 1022;
  Mul 1502 393 1149; Add 1643 1509 1502; Sub 1526 1526 1643; Add 1647 1647 1526; Sub 1528 1528 1647;
  Mul 1647 598 1664; Add 1526 1529 1363; Mul 1643 363 1526; Sub 1647 1647 1643; Mul 1643 387 1097;
  Mul 1424 596 1297; Add 1643 1643 1424; Add 1647 1647 1643; Mul 1643 405 1401; Mul 1424 389 1022;
  Add 1643 1643 1424; Add 1647 1647 1643; Mul 1643 475 1310; Mul 1424 387 1700; Mul 1108 391 1297;
  Add 1424 1424 1108; Mul 1108 363 1310; Mul 1693 381 1664; Add 1108 1108 1693; Sub 1424 1424 1108;
  Sub 1424 1680 1424; Mul 1424 378 1424; Mul 1108 381 1424; Add 1643 1643 1108; Mul 1108 600 1466;
  Mul 1693 363 1466; Mul 1130 384 1664; Add 1693 1693 1130; Mul 1130 405 1700; Mul 1326 391 1022;
  Add 1130 1130 1326; Sub 1693 1693 1130; Sub 1693 1345 1693; Mul 1693 378 1693; Mul 1130 384 1693;
  Add 1108 1108 1130; Sub 1643 1643 1108; Add 1647 1647 1643; Mul 1647 213 1647; Sub 1528 1528 1647;
  Mul 1643 607 1343; Mul 1108 423 1250; Mul 1130 40 1464; Mul 1326 42 1454; Add 1130 1130 1326;
  Add 1108 1108 1130; Mul 1130 372 1108; Mul 1326 589 1250; Add 1130 1130 1326].
Definition casadi_f0_578 : list instruction := [
  Mul 1326 40 1250; Mul 1681 14 1464; Mul 1454 18 1454; Add 1681 1681 1454; Add 1326 1326 1681;
  Mul 1681 429 1326; Mul 1464 603 1464; Add 1681 1681 1464; Add 1130 1130 1681; Mul 1681 1428 1617;
  Mul 1464 1264 1090; Add 1454 1681 1464; Mul 1454 430 1454; Add 1454 1130 1454; Mul 1154 420 1454;
  Add 1176 1643 1154; Mul 1239 610 1394; Mul 1108 358 1108; Mul 1125 589 1651; Add 1108 1108 1125;
  Mul 1326 418 1326; Mul 1391 603 1391; Add 1326 1326 1391; Add 1108 1108 1326; Mul 1465 43 1465;
  Mul 1326 431 1194; Sub 1465 1465 1326; Add 1108 1108 1465; Mul 1127 434 1127; Mul 1465 446 1427;
  Add 1127 1127 1465; Sub 1127 1108 1127; Mul 1465 442 1127; Add 1326 1239 1465; Sub 1176 1176 1326;
  Mul 1326 463 1090; Mul 1391 438 1139; Add 1125 1326 1391; Mul 1559 434 1352; Mul 1671 455 1427;
  Add 1216 1559 1671; Add 1125 1125 1216; Mul 1216 1437 1427; Add 1681 1681 1216; Mul 1681 430 1681;
  Add 1681 1611 1681; Mul 1640 420 1681; Mul 1551 605 1343; Add 1346 1640 1551; Mul 1618 614 1603;
  Mul 1585 213 1241; Mul 1396 447 1585; Add 1089 1618 1396; Sub 1346 1346 1089; Add 1125 1125 1346;
  Sub 1176 1176 1125; Mul 1125 13 1055; Add 1346 1130 1611; Mul 1089 417 1346; Sub 1125 1125 1089;
  Mul 1089 441 1108; Mul 1206 609 1074; Add 1089 1089 1206; Add 1125 1125 1089; Mul 1089 459 1086;
  Mul 1206 443 1241; Add 1089 1089 1206; Add 1125 1125 1089; Mul 1089 477 1427; Mul 1206 441 1617;
  Mul 1423 445 1074; Add 1206 1206 1423; Mul 1423 417 1427; Mul 1494 434 1055; Add 1423 1423 1494;
  Sub 1206 1206 1423; Sub 1206 1140 1206; Mul 1206 430 1206; Mul 1423 434 1206; Add 1089 1089 1423;
  Mul 1423 611 1090; Mul 1494 417 1090; Mul 1236 438 1055; Add 1494 1494 1236; Mul 1236 459 1617;
  Mul 1487 445 1241; Add 1236 1236 1487; Sub 1494 1494 1236; Sub 1494 1280 1494; Mul 1494 430 1494;
  Mul 1236 438 1494; Add 1423 1423 1236; Sub 1089 1089 1423; Add 1125 1125 1089; Mul 1125 213 1125;
  Sub 1176 1176 1125; Add 1528 1528 1176; Add 1162 1162 1528; Add 1255 1255 1162; Add 1367 1367 1255;
  Mul 1367 216 1367; Mul 1089 554 1217; Sub 1367 1367 1089; Mul 1089 242 1175; Mul 1423 230 1243;
  Sub 1089 1089 1423; Mul 1423 560 1549; Mul 1236 248 1445; Add 1487 1423 1236; Mul 1429 244 1429;
  Mul 1691 551 1610; Add 1545 1429 1691; Sub 1487 1487 1545; Sub 1487 1089 1487; Mul 1545 556 1392;
  Mul 1668 249 1256; Add 1016 1545 1668; Mul 1542 558 1610; Sub 1477 1477 1126; Mul 1477 212 1477;
  Add 1477 1517 1477; Mul 1126 244 1477; Add 1581 1542 1126; Sub 1016 1016 1581; Add 1487 1487 1016;
  Mul 1016 219 1538; Mul 1581 555 1180; Add 1016 1016 1581; Mul 1581 227 1595; Mul 1254 550 1079;
  Add 1581 1581 1254; Add 1016 1016 1581; Mul 1581 525 1051; Mul 1254 246 1441; Add 1581 1581 1254;
  Add 1016 1016 1581; Mul 1581 231 1565; Mul 1254 340 1215; Sub 1581 1581 1254; Mul 1254 525 1110;
  Mul 1032 225 1441; Add 1254 1254 1032; Mul 1032 242 1079; Mul 1407 227 1243; Sub 1032 1032 1407;
  Sub 1254 1254 1032; Add 1254 1467 1254; Mul 1254 212 1254; Mul 1032 242 1254].
Definition casadi_f0_579 : list instruction := [
  Mul 1407 616 1243; Sub 1032 1032 1407; Sub 1581 1581 1032; Add 1016 1016 1581; Mul 1016 213 1016;
  Add 1487 1487 1016; Mul 1581 570 1567; Mul 1032 258 1469; Add 1407 1581 1032; Mul 1329 572 1632;
  Add 1388 1388 1341; Mul 1388 269 1388; Sub 1388 1388 1188; Mul 1341 279 1388; Add 1512 1329 1341;
  Sub 1407 1407 1512; Mul 1512 297 1533; Mul 1313 275 1412; Add 1251 1512 1313; Mul 1436 282 1380;
  Mul 1116 292 1386; Add 1426 1436 1116; Add 1251 1251 1426; Mul 1426 574 1137; Mul 1311 276 1563;
  Add 1047 1426 1311; Mul 1659 279 1659; Mul 1674 565 1632; Add 1146 1659 1674; Sub 1047 1047 1146;
  Add 1251 1251 1047; Sub 1407 1407 1251; Mul 1251 255 1539; Mul 1047 569 1237; Add 1251 1251 1047;
  Mul 1047 278 1608; Mul 1146 564 1179; Add 1047 1047 1146; Add 1251 1251 1047; Mul 1047 296 1627;
  Mul 1146 266 1151; Add 1047 1047 1146; Add 1251 1251 1047; Mul 1047 617 1533; Mul 1146 296 1550;
  Mul 1182 271 1151; Add 1146 1146 1182; Mul 1182 278 1533; Mul 1120 275 1179; Add 1182 1182 1120;
  Sub 1146 1146 1182; Sub 1146 1676 1146; Mul 1146 269 1146; Mul 1182 275 1146; Add 1047 1047 1182;
  Mul 1182 471 1386; Mul 1120 282 1168; Add 1182 1182 1120; Sub 1047 1047 1182; Add 1251 1251 1047;
  Mul 1251 213 1251; Add 1407 1407 1251; Mul 1047 584 1289; Mul 1182 312 1219; Add 1120 1047 1182;
  Mul 1576 586 1398; Add 1272 1272 1580; Mul 1272 323 1272; Sub 1272 1272 1279; Mul 1580 333 1272;
  Add 1672 1576 1580; Sub 1120 1120 1672; Mul 1672 351 1449; Mul 1537 329 1607; Add 1497 1672 1537;
  Mul 1308 336 1312; Mul 1339 346 1198; Add 1076 1308 1339; Add 1497 1497 1076; Mul 1076 588 1082;
  Mul 1111 330 1229; Add 1374 1076 1111; Mul 1489 333 1489; Mul 1670 579 1398; Add 1511 1489 1670;
  Sub 1374 1374 1511; Add 1497 1497 1374; Sub 1120 1120 1497; Mul 1497 309 1621; Mul 1374 583 1568;
  Add 1497 1497 1374; Mul 1374 332 1172; Mul 1511 578 1205; Add 1374 1374 1511; Add 1497 1497 1374;
  Mul 1374 349 1473; Mul 1511 320 1695; Add 1374 1374 1511; Add 1497 1497 1374; Mul 1374 619 1449;
  Mul 1511 349 1507; Mul 1281 325 1695; Add 1511 1511 1281; Mul 1281 332 1449; Mul 1296 329 1205;
  Add 1281 1281 1296; Sub 1511 1511 1281; Sub 1511 1147 1511; Mul 1511 323 1511; Mul 1281 329 1511;
  Add 1374 1374 1281; Mul 1281 473 1198; Mul 1296 336 1555; Add 1281 1281 1296; Sub 1374 1374 1281;
  Add 1497 1497 1374; Mul 1497 213 1497; Add 1120 1120 1497; Mul 1374 597 1438; Mul 1281 366 1650;
  Add 1296 1374 1281; Mul 1499 599 1527; Add 1348 1348 1368; Mul 1348 378 1348; Sub 1348 1348 1526;
  Mul 1368 388 1348; Add 1300 1499 1368; Sub 1296 1296 1300; Mul 1300 406 1466; Mul 1121 384 1602;
  Add 1223 1300 1121; Mul 1112 391 1183; Mul 1523 401 1700; Add 1679 1112 1523; Add 1223 1223 1679;
  Mul 1679 601 1503; Mul 1185 385 1149; Add 1696 1679 1185; Mul 1211 388 1211; Mul 1646 592 1527;
  Add 1413 1211 1646; Sub 1696 1696 1413; Add 1223 1223 1696; Sub 1296 1296 1223; Mul 1223 363 1097;
  Mul 1696 596 1664; Add 1223 1223 1696; Mul 1696 387 1529; Mul 1413 591 1297].
Definition casadi_f0_580 : list instruction := [
  Add 1696 1696 1413; Add 1223 1223 1696; Mul 1696 405 1037; Mul 1413 374 1022; Add 1696 1696 1413;
  Add 1223 1223 1696; Mul 1696 621 1466; Mul 1413 405 1310; Mul 1038 381 1022; Add 1413 1413 1038;
  Mul 1038 387 1466; Mul 1275 384 1297; Add 1038 1038 1275; Sub 1413 1413 1038; Sub 1413 1582 1413;
  Mul 1413 378 1413; Mul 1038 384 1413; Add 1696 1696 1038; Mul 1038 475 1700; Mul 1275 391 1424;
  Add 1038 1038 1275; Sub 1696 1696 1038; Add 1223 1223 1696; Mul 1223 213 1223; Add 1296 1296 1223;
  Mul 1696 610 1343; Mul 1038 420 1127; Add 1275 1696 1038; Mul 1324 612 1394; Add 1216 1216 1464;
  Mul 1216 430 1216; Sub 1216 1216 1346; Mul 1464 442 1216; Add 1687 1324 1464; Sub 1275 1275 1687;
  Mul 1687 460 1090; Mul 1142 438 1316; Add 1475 1687 1142; Mul 1118 445 1352; Mul 1590 455 1617;
  Add 1323 1118 1590; Add 1475 1475 1323; Mul 1323 614 1096; Mul 1230 439 1585; Add 1305 1323 1230;
  Mul 1681 442 1681; Mul 1439 605 1394; Add 1332 1681 1439; Sub 1305 1305 1332; Add 1475 1475 1305;
  Sub 1275 1275 1475; Mul 1475 417 1108; Mul 1305 609 1055; Add 1475 1475 1305; Mul 1305 441 1130;
  Mul 1332 604 1074; Add 1305 1305 1332; Add 1475 1475 1305; Mul 1305 459 1200; Mul 1332 426 1241;
  Add 1305 1305 1332; Add 1475 1475 1305; Mul 1305 623 1090; Mul 1332 459 1427; Mul 1459 434 1241;
  Add 1332 1332 1459; Mul 1459 441 1090; Mul 1025 438 1074; Add 1459 1459 1025; Sub 1332 1332 1459;
  Sub 1332 1506 1332; Mul 1332 430 1332; Mul 1459 438 1332; Add 1305 1305 1459; Mul 1459 477 1617;
  Mul 1025 445 1206; Add 1459 1459 1025; Sub 1305 1305 1459; Add 1475 1475 1305; Mul 1475 213 1475;
  Add 1275 1275 1475; Add 1296 1296 1275; Add 1120 1120 1296; Add 1407 1407 1120; Add 1487 1487 1407;
  Mul 1487 215 1487; Mul 1305 613 1171; Add 1487 1487 1305; Sub 1367 1367 1487; Mul 1487 212 1392;
  Mul 1305 242 1487; Mul 1459 624 1243; Sub 1305 1305 1459; Mul 1459 212 1445; Mul 1025 231 1459;
  Mul 1141 626 1215; Sub 1025 1025 1141; Add 1025 1347 1025; Sub 1305 1305 1025; Mul 1025 213 1656;
  Add 1141 1305 1025; Mul 1364 269 1567; Mul 1478 275 1364; Mul 1421 629 1533; Add 1399 1478 1421;
  Mul 1649 631 1386; Mul 1543 269 1563; Mul 1452 282 1543; Add 1468 1649 1452; Add 1468 1685 1468;
  Sub 1399 1399 1468; Mul 1468 213 1566; Add 1356 1399 1468; Mul 1081 323 1289; Mul 1694 329 1081;
  Mul 1134 634 1449; Add 1624 1694 1134; Mul 1195 636 1198; Mul 1682 323 1229; Mul 1233 336 1682;
  Add 1135 1195 1233; Add 1135 1287 1135; Sub 1624 1624 1135; Mul 1135 213 1373; Add 1124 1624 1135;
  Mul 1319 378 1438; Mul 1122 384 1319; Mul 1018 639 1466; Add 1686 1122 1018; Mul 1451 641 1700;
  Mul 1268 378 1149; Mul 1474 391 1268; Add 1641 1451 1474; Add 1641 1303 1641; Sub 1686 1686 1641;
  Mul 1641 213 1693; Add 1166 1686 1641; Mul 1606 430 1343; Mul 1091 438 1606; Mul 1639 644 1090;
  Add 1598 1091 1639; Mul 1189 646 1617; Mul 1420 430 1585; Mul 1450 445 1420; Add 1613 1189 1450;
  Add 1613 1139 1613; Sub 1598 1598 1613; Mul 1613 213 1494; Add 1263 1598 1613].
Definition casadi_f0_581 : list instruction := [
  Add 1166 1166 1263; Add 1124 1124 1166; Add 1356 1356 1124; Add 1141 1141 1356; Mul 1141 540 1141;
  Mul 1106 628 1495; Sub 1141 1141 1106; Mul 1106 212 1610; Mul 1161 242 1106; Mul 1519 650 1243;
  Sub 1161 1161 1519; Mul 1519 626 1110; Mul 1403 225 1459; Add 1519 1519 1403; Add 1519 1175 1519;
  Sub 1161 1161 1519; Mul 1519 213 1254; Add 1403 1161 1519; Mul 1021 631 1550; Mul 1173 271 1543;
  Add 1484 1021 1173; Sub 1484 1412 1484; Mul 1604 269 1632; Mul 1295 275 1604; Mul 1019 655 1533;
  Add 1114 1295 1019; Add 1484 1484 1114; Mul 1114 213 1146; Sub 1491 1484 1114; Mul 1115 636 1507;
  Mul 1276 325 1682; Add 1634 1115 1276; Sub 1634 1607 1634; Mul 1317 323 1398; Mul 1145 329 1317;
  Mul 1488 659 1449; Add 1699 1145 1488; Add 1634 1634 1699; Mul 1699 213 1511; Sub 1036 1634 1699;
  Mul 1501 641 1310; Mul 1456 381 1268; Add 1226 1501 1456; Sub 1226 1602 1226; Mul 1024 378 1527;
  Mul 1213 384 1024; Mul 1500 663 1466; Add 1192 1213 1500; Add 1226 1226 1192; Mul 1192 213 1413;
  Sub 1597 1226 1192; Mul 1337 646 1427; Mul 1616 434 1420; Add 1221 1337 1616; Sub 1221 1316 1221;
  Mul 1540 430 1394; Mul 1416 438 1540; Mul 1261 667 1090; Add 1227 1416 1261; Add 1221 1221 1227;
  Mul 1227 213 1332; Sub 1351 1221 1227; Add 1597 1597 1351; Add 1036 1036 1597; Add 1491 1491 1036;
  Add 1403 1403 1491; Mul 1403 544 1403; Mul 1375 653 1683; Add 1403 1403 1375; Add 1141 1141 1403;
  Sub 1367 1367 1141; Add 1588 1588 1367; Mul 1588 1 1588; Mul 1367 509 1483; Add 1588 1588 1367;
  Add 1288 1288 1588; Mul 1588 602 1376; Mul 1367 216 1151; Mul 1141 296 1217; Sub 1367 1367 1141;
  Mul 1141 517 1367; Add 1588 1588 1141; Mul 1141 670 1444; Mul 1403 215 1151; Mul 1375 296 1171;
  Add 1403 1403 1375; Mul 1375 532 1403; Add 1141 1141 1375; Add 1588 1588 1141; Mul 1148 671 1148;
  Mul 1141 216 1237; Mul 1375 255 1217; Sub 1141 1141 1375; Mul 1375 215 1179; Mul 1123 278 1171;
  Add 1375 1375 1123; Add 1141 1141 1375; Mul 1375 492 1141; Add 1148 1148 1375; Sub 1588 1588 1148;
  Mul 1148 675 1327; Mul 1375 215 1689; Mul 1123 290 1171; Add 1375 1375 1123; Mul 1123 674 1151;
  Mul 1476 216 1060; Mul 1675 274 1217; Add 1476 1476 1675; Mul 1675 296 1476; Sub 1123 1123 1675;
  Mul 1675 676 1237; Mul 1662 215 1662; Mul 1402 270 1171; Add 1662 1662 1402; Mul 1663 216 1663;
  Mul 1402 281 1217; Add 1663 1663 1402; Sub 1662 1662 1663; Mul 1663 255 1662; Add 1675 1675 1663;
  Add 1123 1123 1675; Add 1375 1375 1123; Mul 1123 602 1642; Mul 1675 523 1367; Add 1123 1123 1675;
  Mul 1675 671 1327; Mul 1663 502 1141; Add 1675 1675 1663; Add 1123 1123 1675; Sub 1123 1375 1123;
  Mul 1123 672 1123; Mul 1675 502 1123; Add 1148 1148 1675; Mul 1675 679 1077; Mul 1689 216 1689;
  Mul 1663 290 1217; Sub 1689 1689 1663; Mul 1663 676 1179; Mul 1402 278 1662; Add 1663 1663 1402;
  Mul 1402 680 1151; Mul 1564 274 1171; Mul 1060 215 1060; Sub 1564 1564 1060; Mul 1060 296 1564;
  Add 1402 1402 1060; Add 1663 1663 1402; Sub 1689 1689 1663; Mul 1663 671 1077].
Definition casadi_f0_582 : list instruction := [
  Mul 1402 505 1141; Add 1663 1663 1402; Mul 1402 670 1642; Mul 1060 523 1403; Add 1402 1402 1060;
  Add 1663 1663 1402; Add 1663 1689 1663; Mul 1663 672 1663; Mul 1402 505 1663; Add 1675 1675 1402;
  Sub 1148 1148 1675; Add 1588 1588 1148; Mul 1356 674 1356; Mul 1148 633 1476; Sub 1356 1356 1148;
  Mul 1491 680 1491; Mul 1148 657 1564; Add 1491 1491 1148; Mul 1543 275 1543; Mul 1533 631 1533;
  Add 1148 1543 1533; Mul 1675 629 1386; Mul 1402 282 1364; Add 1060 1675 1402; Mul 1282 655 1550;
  Mul 1102 271 1604; Add 1152 1282 1102; Add 1533 1533 1543; Add 1543 1152 1533; Add 1060 1060 1543;
  Sub 1470 1148 1060; Add 1402 1402 1675; Add 1102 1102 1282; Add 1148 1102 1148; Add 1402 1402 1148;
  Sub 1533 1533 1402; Sub 1470 1470 1533; Mul 1682 329 1682; Mul 1449 636 1449; Add 1533 1682 1449;
  Mul 1282 634 1198; Mul 1675 336 1081; Add 1318 1282 1675; Mul 1244 659 1507; Mul 1431 325 1317;
  Add 1225 1244 1431; Add 1449 1449 1682; Add 1682 1225 1449; Add 1318 1318 1682; Sub 1163 1533 1318;
  Add 1675 1675 1282; Add 1431 1431 1244; Add 1533 1431 1533; Add 1675 1675 1533; Sub 1449 1449 1675;
  Sub 1163 1163 1449; Mul 1268 384 1268; Mul 1466 641 1466; Add 1449 1268 1466; Mul 1244 639 1700;
  Mul 1282 391 1319; Add 1242 1244 1282; Mul 1087 663 1310; Mul 1235 381 1024; Add 1104 1087 1235;
  Add 1466 1466 1268; Add 1268 1104 1466; Add 1242 1242 1268; Sub 1325 1449 1242; Add 1282 1282 1244;
  Add 1235 1235 1087; Add 1449 1235 1449; Add 1282 1282 1449; Sub 1466 1466 1282; Sub 1325 1325 1466;
  Mul 1420 438 1420; Mul 1466 646 1090; Add 1087 1420 1466; Mul 1244 644 1617; Mul 1075 445 1606;
  Add 1496 1244 1075; Mul 1558 667 1427; Mul 1093 434 1540; Add 1601 1558 1093; Add 1466 1466 1420;
  Add 1420 1601 1466; Add 1496 1496 1420; Sub 1199 1087 1496; Add 1075 1075 1244; Add 1093 1093 1558;
  Add 1087 1093 1087; Add 1075 1075 1087; Sub 1466 1466 1075; Sub 1199 1199 1466; Add 1325 1325 1199;
  Add 1163 1163 1325; Add 1470 1470 1163; Mul 1470 676 1470; Mul 1466 687 1662; Add 1558 1470 1466;
  Sub 1491 1491 1558; Add 1356 1356 1491; Mul 1407 215 1407; Mul 1491 552 1171; Add 1407 1407 1491;
  Mul 1255 216 1255; Mul 1491 568 1217; Sub 1255 1255 1491; Sub 1407 1407 1255; Add 1356 1356 1407;
  Add 1588 1588 1356; Mul 1588 2 1588; Mul 1356 649 1570; Add 1588 1588 1356; Add 1288 1288 1588;
  Mul 1406 677 1406; Mul 1588 216 1568; Mul 1356 309 1217; Sub 1588 1588 1356; Mul 1356 215 1205;
  Mul 1407 332 1171; Add 1356 1356 1407; Add 1588 1588 1356; Mul 1356 484 1588; Add 1406 1406 1356;
  Mul 1356 706 1132; Mul 1407 216 1695; Mul 1255 349 1217; Sub 1407 1407 1255; Mul 1255 513 1407;
  Add 1356 1356 1255; Mul 1255 712 1349; Mul 1491 215 1695; Mul 1558 349 1171; Add 1491 1491 1558;
  Mul 1558 530 1491; Add 1255 1255 1558; Add 1356 1356 1255; Sub 1406 1406 1356; Mul 1356 711 1049;
  Mul 1255 706 1654; Mul 1558 519 1407; Add 1255 1255 1558; Mul 1558 677 1049; Mul 1244 494 1588;
  Add 1558 1558 1244; Add 1255 1255 1558; Mul 1558 215 1655; Mul 1244 344 1171].
Definition casadi_f0_583 : list instruction := [
  Add 1558 1558 1244; Mul 1244 714 1695; Mul 1354 216 1653; Mul 1240 328 1217; Sub 1354 1354 1240;
  Mul 1240 349 1354; Add 1244 1244 1240; Mul 1240 716 1568; Mul 1609 216 1609; Mul 1677 335 1217;
  Sub 1609 1609 1677; Mul 1447 215 1447; Mul 1677 324 1171; Add 1447 1447 1677; Add 1609 1609 1447;
  Mul 1447 309 1609; Add 1240 1240 1447; Add 1244 1244 1240; Add 1558 1558 1244; Sub 1255 1255 1558;
  Mul 1255 156 1255; Mul 1244 494 1255; Add 1356 1356 1244; Mul 1244 719 1417; Mul 1240 716 1205;
  Mul 1447 332 1609; Add 1240 1240 1447; Mul 1447 718 1695; Mul 1653 215 1653; Mul 1677 328 1171;
  Add 1653 1653 1677; Mul 1677 349 1653; Add 1447 1447 1677; Add 1240 1240 1447; Mul 1655 216 1655;
  Mul 1447 344 1217; Sub 1655 1655 1447; Sub 1240 1240 1655; Mul 1655 677 1417; Mul 1447 497 1588;
  Add 1655 1655 1447; Mul 1447 712 1654; Mul 1677 519 1491; Add 1447 1447 1677; Add 1655 1655 1447;
  Sub 1655 1240 1655; Mul 1655 156 1655; Mul 1447 497 1655; Add 1244 1244 1447; Sub 1356 1356 1244;
  Add 1406 1406 1356; Mul 1163 716 1163; Mul 1356 694 1609; Add 1244 1163 1356; Mul 1036 718 1036;
  Mul 1447 661 1653; Add 1036 1036 1447; Sub 1244 1244 1036; Mul 1124 714 1124; Mul 1036 638 1354;
  Add 1124 1124 1036; Sub 1244 1244 1124; Mul 1162 216 1162; Mul 1124 582 1217; Sub 1162 1162 1124;
  Mul 1120 215 1120; Mul 1124 618 1171; Add 1120 1120 1124; Sub 1162 1162 1120; Add 1244 1244 1162;
  Add 1406 1406 1244; Mul 1406 3 1406; Mul 1244 681 1253; Add 1406 1406 1244; Add 1288 1288 1406;
  Mul 1406 715 1697; Mul 1244 327 1022; Mul 1162 405 1320; Add 1244 1244 1162; Mul 1162 318 1297;
  Mul 1120 387 1034; Add 1162 1162 1120; Sub 1244 1244 1162; Mul 1162 510 1244; Add 1406 1406 1162;
  Mul 1162 721 1389; Mul 1120 318 1664; Mul 1124 363 1034; Add 1120 1120 1124; Mul 1124 310 1022;
  Mul 1036 405 1644; Add 1124 1124 1036; Sub 1120 1120 1124; Mul 1124 528 1120; Add 1162 1162 1124;
  Add 1406 1406 1162; Mul 1162 722 1164; Mul 1124 310 1297; Mul 1036 387 1644; Add 1124 1124 1036;
  Mul 1036 327 1664; Mul 1447 363 1320; Add 1036 1036 1447; Sub 1124 1124 1036; Mul 1036 479 1124;
  Add 1162 1162 1036; Add 1406 1406 1162; Mul 1162 726 1455; Mul 1036 318 1582; Mul 1447 404 1034;
  Add 1036 1036 1447; Mul 1447 310 1680; Mul 1677 399 1644; Add 1447 1447 1677; Sub 1036 1036 1447;
  Mul 1447 725 1022; Mul 1677 327 1196; Mul 1518 383 1320; Add 1677 1677 1518; Mul 1518 318 1432;
  Mul 1283 379 1034; Add 1518 1518 1283; Sub 1677 1677 1518; Mul 1518 405 1677; Add 1447 1447 1518;
  Mul 1518 727 1664; Mul 1432 310 1432; Mul 1283 379 1644; Add 1432 1432 1283; Mul 1283 327 1546;
  Mul 1193 390 1320; Add 1283 1283 1193; Sub 1432 1432 1283; Mul 1283 363 1432; Add 1518 1518 1283;
  Sub 1447 1447 1518; Add 1036 1036 1447; Mul 1447 715 1143; Mul 1518 515 1244; Add 1447 1447 1518;
  Mul 1518 722 1455; Mul 1283 486 1124; Add 1518 1518 1283; Sub 1447 1447 1518; Sub 1447 1036 1447;
  Mul 1447 723 1447; Mul 1518 486 1447; Add 1162 1162 1518; Mul 1518 730 1571].
Definition casadi_f0_584 : list instruction := [
  Mul 1680 327 1680; Mul 1283 399 1320; Add 1680 1680 1283; Mul 1283 318 1345; Mul 1193 408 1034;
  Add 1283 1283 1193; Sub 1680 1680 1283; Mul 1283 727 1297; Mul 1193 387 1432; Add 1283 1283 1193;
  Mul 1193 731 1022; Mul 1546 318 1546; Mul 1486 390 1034; Add 1546 1546 1486; Mul 1196 310 1196;
  Mul 1486 383 1644; Add 1196 1196 1486; Sub 1546 1546 1196; Mul 1196 405 1546; Add 1193 1193 1196;
  Sub 1283 1283 1193; Add 1680 1680 1283; Mul 1283 722 1571; Mul 1193 489 1124; Add 1283 1283 1193;
  Mul 1193 721 1143; Mul 1196 515 1120; Add 1193 1193 1196; Sub 1283 1283 1193; Sub 1283 1680 1283;
  Mul 1283 723 1283; Mul 1193 489 1283; Add 1518 1518 1193; Sub 1162 1162 1518; Add 1406 1406 1162;
  Mul 1162 725 1166; Mul 1518 643 1677; Add 1162 1162 1518; Mul 1518 731 1597; Mul 1193 665 1546;
  Add 1518 1518 1193; Mul 1193 727 1325; Mul 1196 701 1432; Add 1486 1193 1196; Add 1518 1518 1486;
  Add 1162 1162 1518; Mul 1518 310 1296; Mul 1486 620 1644; Add 1518 1518 1486; Mul 1486 327 1528;
  Mul 1684 595 1320; Add 1486 1486 1684; Mul 1105 318 1105; Mul 1684 395 1034; Add 1333 1105 1684;
  Add 1486 1486 1333; Add 1518 1518 1486; Sub 1162 1162 1518; Add 1406 1406 1162; Mul 1162 4 1406;
  Mul 1518 720 1355; Add 1162 1162 1518; Add 1288 1288 1162; Mul 1162 728 1086; Mul 1518 372 1241;
  Mul 1486 459 1250; Add 1518 1518 1486; Mul 1486 369 1074; Mul 1333 441 1194; Add 1486 1486 1333;
  Sub 1518 1518 1486; Mul 1486 443 1518; Add 1162 1162 1486; Mul 1486 733 1200; Mul 1333 369 1055;
  Mul 1353 417 1194; Add 1333 1333 1353; Mul 1353 358 1241; Mul 1479 459 1651; Add 1353 1353 1479;
  Sub 1333 1333 1353; Mul 1353 426 1333; Add 1486 1486 1353; Add 1162 1162 1486; Mul 1486 734 1611;
  Mul 1353 358 1074; Mul 1479 441 1651; Add 1353 1353 1479; Mul 1479 372 1055; Mul 1144 417 1250;
  Add 1479 1479 1144; Sub 1353 1353 1479; Mul 1479 478 1353; Add 1486 1486 1479; Add 1162 1162 1486;
  Mul 1486 735 1617; Mul 1479 369 1506; Mul 1144 458 1194; Add 1479 1479 1144; Mul 1144 358 1140;
  Mul 1128 451 1651; Add 1144 1144 1128; Sub 1479 1479 1144; Mul 1144 736 1241; Mul 1128 372 1544;
  Mul 1393 437 1250; Add 1128 1128 1393; Mul 1393 369 1330; Mul 1573 432 1194; Add 1393 1393 1573;
  Sub 1128 1128 1393; Mul 1393 459 1128; Add 1144 1144 1393; Mul 1393 738 1055; Mul 1330 358 1330;
  Mul 1573 432 1651; Add 1330 1330 1573; Mul 1573 372 1119; Mul 1030 444 1250; Add 1573 1573 1030;
  Sub 1330 1330 1573; Mul 1573 417 1330; Add 1393 1393 1573; Sub 1144 1144 1393; Add 1479 1479 1144;
  Mul 1144 728 1090; Mul 1393 438 1518; Add 1144 1144 1393; Mul 1393 734 1617; Mul 1573 445 1353;
  Add 1393 1393 1573; Sub 1144 1144 1393; Sub 1479 1479 1144; Mul 1479 430 1479; Mul 1144 445 1479;
  Add 1486 1486 1144; Mul 1144 739 1427; Mul 1140 372 1140; Mul 1393 451 1250; Add 1140 1140 1393;
  Mul 1393 369 1280; Mul 1573 462 1194; Add 1393 1393 1573; Sub 1140 1140 1393; Mul 1393 738 1074;
  Mul 1573 441 1330; Add 1393 1393 1573; Mul 1573 741 1241; Mul 1119 369 1119].
Definition casadi_f0_585 : list instruction := [
  Mul 1030 444 1194; Add 1119 1119 1030; Mul 1544 358 1544; Mul 1030 437 1651; Add 1544 1544 1030;
  Sub 1119 1119 1544; Mul 1544 459 1119; Add 1573 1573 1544; Sub 1393 1393 1573; Add 1140 1140 1393;
  Mul 1393 734 1427; Mul 1573 434 1353; Add 1393 1393 1573; Mul 1573 733 1090; Mul 1544 438 1333;
  Add 1573 1573 1544; Sub 1393 1393 1573; Sub 1140 1140 1393; Mul 1140 430 1140; Mul 1393 434 1140;
  Add 1144 1144 1393; Sub 1486 1486 1144; Add 1162 1162 1486; Mul 1486 736 1263; Mul 1144 648 1128;
  Add 1486 1486 1144; Mul 1144 741 1351; Mul 1393 669 1119; Add 1144 1144 1393; Mul 1393 738 1199;
  Mul 1573 708 1330; Add 1544 1393 1573; Add 1144 1144 1544; Add 1486 1486 1144; Mul 1144 358 1275;
  Mul 1544 622 1651; Add 1144 1144 1544; Mul 1544 372 1176; Mul 1030 608 1250; Add 1544 1544 1030;
  Mul 1579 369 1579; Mul 1030 449 1194; Add 1372 1579 1030; Add 1544 1544 1372; Add 1144 1144 1544;
  Sub 1486 1486 1144; Add 1162 1162 1486; Mul 1486 5 1162; Mul 1144 732 1514; Add 1486 1486 1144;
  Add 1288 1288 1486; Mul 1486 286 1463; Mul 1144 212 1486; Mul 1144 107 1144; Mul 1544 745 1443;
  Mul 1372 737 1443; Mul 1109 9 1486; Add 1372 1372 1109; Mul 1109 743 1265; Mul 1673 286 1498; Mul 1387 8 1673;
  Add 1109 1109 1387; Sub 1372 1372 1109; Mul 1109 269 1372; Mul 1387 81 1109; Mul 1418 746 1382;
  Mul 1222 743 1443; Mul 1410 9 1673; Sub 1222 1222 1410; Mul 1486 8 1486; Mul 1410 737 1265;
  Sub 1486 1486 1410; Sub 1222 1222 1486; Mul 1486 53 1222; Add 1418 1418 1486; Mul 1486 66 1372;
  Mul 1410 742 1377; Sub 1486 1486 1410; Add 1418 1418 1486; Mul 1486 323 1418; Mul 1410 47 1486;
  Mul 1174 378 1418; Mul 1101 24 1174; Mul 1678 752 1201; Mul 1307 66 1222; Mul 1131 746 1377;
  Sub 1307 1307 1131; Mul 1131 742 1382; Mul 1372 53 1372; Add 1131 1131 1372; Sub 1307 1307 1131;
  Mul 1131 35 1307; Add 1678 1678 1131; Mul 1131 378 1678; Mul 1372 31 1131; Sub 1101 1101 1372;
  Mul 1372 753 1100; Mul 1532 15 1678; Add 1372 1372 1532; Mul 1532 16 1418; Mul 1157 747 1521;
  Sub 1532 1532 1157; Add 1372 1372 1532; Mul 1372 430 1372; Mul 1532 26 1372; Mul 1678 16 1678;
  Mul 1157 753 1521; Sub 1678 1678 1157; Mul 1157 747 1100; Mul 1418 15 1418; Add 1157 1157 1418;
  Sub 1678 1678 1157; Mul 1678 430 1678; Mul 1157 28 1678; Sub 1532 1532 1157; Mul 1157 16 1372;
  Mul 1418 755 1521; Sub 1157 1157 1418; Mul 1418 757 1100; Mul 1158 15 1678; Add 1418 1418 1158;
  Sub 1157 1157 1418; Mul 1418 25 1157; Mul 1158 16 1678; Mul 1344 757 1521; Sub 1158 1158 1344;
  Mul 1344 755 1100; Mul 1462 15 1372; Add 1344 1344 1462; Add 1158 1158 1344; Mul 1344 32 1158;
  Sub 1418 1418 1344; Add 1418 1532 1418; Add 1101 1101 1418; Mul 1418 19 1101; Mul 1344 751 1408;
  Sub 1418 1418 1344; Mul 1344 763 1201; Mul 1462 19 1307; Mul 1371 752 1408; Sub 1462 1462 1371;
  Mul 1371 378 1462; Mul 1186 31 1371; Mul 1048 380 1174; Sub 1186 1186 1048; Mul 1462 430 1462;
  Mul 1048 28 1462; Mul 1372 433 1372; Sub 1048 1048 1372].
Definition casadi_f0_586 : list instruction := [
  Mul 1372 16 1048; Mul 1246 764 1521; Sub 1372 1372 1246; Mul 1246 766 1100; Mul 1678 433 1678;
  Mul 1234 26 1462; Sub 1678 1678 1234; Mul 1234 15 1678; Add 1246 1246 1234; Add 1372 1372 1246;
  Mul 1246 32 1462; Mul 1234 198 1157; Sub 1246 1246 1234; Add 1372 1372 1246; Add 1186 1186 1372;
  Mul 1372 35 1186; Add 1344 1344 1372; Add 1418 1418 1344; Add 1174 1174 1157; Mul 1157 48 1174;
  Add 1344 1131 1158; Mul 1372 19 1344; Mul 1246 765 1408; Sub 1372 1372 1246; Mul 1246 768 1201;
  Add 1234 1371 1462; Mul 1702 35 1234; Add 1246 1246 1702; Sub 1372 1372 1246; Mul 1246 55 1372;
  Sub 1157 1157 1246; Add 1418 1418 1157; Add 1410 1410 1418; Mul 1418 66 1410; Mul 1157 749 1377;
  Sub 1418 1418 1157; Mul 1157 762 1382; Mul 1131 380 1131; Mul 1371 24 1371; Sub 1131 1131 1371;
  Mul 1678 16 1678; Mul 1521 766 1521; Sub 1678 1678 1521; Mul 1100 764 1100; Mul 1048 15 1048;
  Add 1100 1100 1048; Sub 1678 1678 1100; Mul 1158 198 1158; Mul 1462 25 1462; Sub 1158 1158 1462;
  Add 1678 1678 1158; Add 1131 1131 1678; Mul 1678 62 1372; Mul 1234 19 1234; Mul 1158 768 1408;
  Sub 1234 1234 1158; Mul 1158 765 1201; Mul 1344 35 1344; Add 1158 1158 1344; Add 1234 1234 1158;
  Mul 1158 48 1234; Sub 1678 1678 1158; Add 1678 1131 1678; Mul 1307 323 1307; Mul 1158 47 1307;
  Sub 1678 1678 1158; Mul 1158 53 1678; Add 1157 1157 1158; Add 1418 1418 1157; Mul 1157 86 1372;
  Sub 1418 1418 1157; Add 1387 1387 1418; Mul 1418 9 1387; Add 1544 1544 1418; Mul 1678 66 1678;
  Mul 1418 762 1377; Sub 1678 1678 1418; Mul 1418 749 1382; Mul 1410 53 1410; Add 1418 1418 1410;
  Sub 1678 1678 1418; Mul 1418 91 1372; Add 1678 1678 1418; Mul 1222 269 1222; Mul 1418 81 1222;
  Sub 1678 1678 1418; Mul 1418 8 1678; Mul 1410 758 1265; Sub 1418 1418 1410; Add 1544 1544 1418;
  Mul 1372 102 1372; Add 1418 1307 1234; Mul 1410 66 1418; Mul 1157 770 1377; Sub 1410 1410 1157;
  Mul 1157 772 1382; Add 1158 1486 1174; Mul 1344 53 1158; Add 1157 1157 1344; Add 1410 1410 1157;
  Add 1157 1222 1410; Mul 1344 8 1157; Mul 1462 773 1265; Sub 1344 1344 1462; Mul 1462 776 1443;
  Mul 1158 66 1158; Mul 1377 772 1377; Sub 1158 1158 1377; Mul 1382 770 1382; Mul 1418 53 1418;
  Add 1382 1382 1418; Sub 1158 1158 1382; Add 1382 1109 1158; Mul 1418 9 1382; Add 1462 1462 1418;
  Sub 1344 1344 1462; Mul 1344 108 1344; Sub 1372 1372 1344; Add 1544 1544 1372; Add 1144 1144 1544;
  Mul 1144 114 1144; Mul 1498 740 1498; Sub 1144 1144 1498; Mul 1463 774 1463; Mul 1387 8 1387;
  Mul 1498 745 1265; Sub 1387 1387 1498; Mul 1498 758 1443; Mul 1678 9 1678; Add 1498 1498 1678;
  Sub 1387 1387 1498; Mul 1443 773 1443; Mul 1157 9 1157; Add 1443 1443 1157; Mul 1382 8 1382;
  Mul 1265 776 1265; Sub 1382 1382 1265; Add 1443 1443 1382; Mul 1382 108 1443; Add 1387 1387 1382;
  Mul 1673 212 1673; Mul 1382 107 1673; Sub 1387 1387 1382; Mul 1387 113 1387; Add 1463 1463 1387;
  Sub 1144 1144 1463; Add 1288 1288 1144; Mul 1144 210 1288; Sub 1636 1636 1144].
Definition casadi_f0_587 : list instruction := [
  Div 1144 1635 92; Mul 1463 1069 1591; Sub 1144 1144 1463; Mul 1463 779 1144; Add 1071 1071 1117;
  Add 1177 1177 1504; Sub 1071 1071 1177; Add 1270 1270 1369; Add 1098 1098 1587; Sub 1270 1270 1098;
  Add 1434 1434 1270; Sub 1071 1071 1434; Add 1071 1071 1314; Add 1084 1084 1359; Add 1271 1271 1267;
  Sub 1084 1084 1271; Add 1560 1560 1622; Add 1658 1658 1099; Add 1560 1560 1658; Add 1557 1557 1701;
  Add 1208 1208 1257; Sub 1557 1557 1208; Add 1560 1560 1557; Sub 1084 1084 1560; Add 1084 1084 1360;
  Add 1210 1210 1584; Add 1425 1425 1187; Sub 1210 1210 1425; Add 1315 1315 1666; Add 1042 1042 1203;
  Add 1315 1315 1042; Add 1181 1181 1525; Add 1274 1274 1457; Sub 1181 1181 1274; Add 1315 1315 1181;
  Sub 1210 1210 1315; Add 1210 1210 1572; Add 1502 1502 1509; Add 1094 1094 1480; Sub 1502 1502 1094;
  Add 1204 1204 1378; Add 1688 1688 1524; Add 1204 1204 1688; Add 1156 1156 1536; Add 1338 1338 1665;
  Sub 1156 1156 1338; Add 1204 1204 1156; Sub 1502 1502 1204; Add 1502 1502 1647; Add 1396 1396 1618;
  Add 1551 1551 1640; Sub 1396 1396 1551; Add 1671 1671 1559; Add 1391 1391 1326; Add 1671 1671 1391;
  Add 1465 1465 1239; Add 1154 1154 1643; Sub 1465 1465 1154; Add 1671 1671 1465; Sub 1396 1396 1671;
  Add 1396 1396 1125; Add 1502 1502 1396; Add 1210 1210 1502; Add 1084 1084 1210; Add 1071 1071 1084;
  Mul 1071 216 1071; Mul 1125 780 1217; Sub 1071 1071 1125; Mul 1125 781 1171; Add 1126 1126 1542;
  Add 1668 1668 1545; Sub 1126 1126 1668; Sub 1089 1089 1126; Add 1691 1691 1429; Add 1236 1236 1423;
  Sub 1691 1691 1236; Add 1089 1089 1691; Sub 1089 1089 1016; Add 1674 1674 1659; Add 1311 1311 1426;
  Sub 1674 1674 1311; Add 1116 1116 1436; Add 1313 1313 1512; Add 1116 1116 1313; Add 1341 1341 1329;
  Add 1032 1032 1581; Sub 1341 1341 1032; Add 1116 1116 1341; Sub 1674 1674 1116; Sub 1674 1674 1251;
  Add 1670 1670 1489; Add 1111 1111 1076; Sub 1670 1670 1111; Add 1339 1339 1308; Add 1537 1537 1672;
  Add 1339 1339 1537; Add 1580 1580 1576; Add 1182 1182 1047; Sub 1580 1580 1182; Add 1339 1339 1580;
  Sub 1670 1670 1339; Sub 1670 1670 1497; Add 1646 1646 1211; Add 1185 1185 1679; Sub 1646 1646 1185;
  Add 1523 1523 1112; Add 1121 1121 1300; Add 1523 1523 1121; Add 1368 1368 1499; Add 1281 1281 1374;
  Sub 1368 1368 1281; Add 1523 1523 1368; Sub 1646 1646 1523; Sub 1646 1646 1223; Add 1439 1439 1681;
  Add 1230 1230 1323; Sub 1439 1439 1230; Add 1590 1590 1118; Add 1142 1142 1687; Add 1590 1590 1142;
  Add 1464 1464 1324; Add 1038 1038 1696; Sub 1464 1464 1038; Add 1590 1590 1464; Sub 1439 1439 1590;
  Sub 1439 1439 1475; Add 1646 1646 1439; Add 1670 1670 1646; Add 1674 1674 1670; Add 1089 1089 1674;
  Mul 1089 215 1089; Add 1125 1125 1089; Sub 1071 1071 1125; Sub 1305 1305 1025; Sub 1399 1399 1468;
  Sub 1624 1624 1135; Sub 1686 1686 1641; Sub 1598 1598 1613; Add 1686 1686 1598; Add 1624 1624 1686;
  Add 1399 1399 1624; Add 1305 1305 1399; Mul 1305 540 1305; Mul 1025 625 1495; Sub 1305 1305 1025;
  Mul 1025 651 1683; Sub 1161 1161 1519; Add 1484 1484 1114; Add 1634 1634 1699].
Definition casadi_f0_588 : list instruction := [
  Add 1226 1226 1192; Add 1221 1221 1227; Add 1226 1226 1221; Add 1634 1634 1226; Add 1484 1484 1634;
  Add 1161 1161 1484; Mul 1161 544 1161; Add 1025 1025 1161; Add 1305 1305 1025; Sub 1071 1071 1305;
  Mul 1071 0 1071; Mul 1305 23 1245; Add 1071 1071 1305; Mul 1657 508 1657; Mul 1305 534 1248;
  Add 1657 1657 1305; Add 1097 1097 1108; Mul 1238 482 1238; Mul 1515 511 1515; Add 1238 1238 1515;
  Sub 1097 1097 1238; Add 1621 1621 1097; Mul 1586 490 1586; Mul 1482 514 1482; Add 1586 1586 1482;
  Sub 1621 1621 1586; Add 1539 1539 1621; Mul 1191 498 1191; Mul 1207 518 1207; Add 1191 1191 1207;
  Sub 1539 1539 1191; Add 1538 1538 1539; Mul 1620 522 1620; Mul 1358 506 1358; Sub 1620 1620 1358;
  Sub 1538 1538 1620; Mul 1620 526 1538; Mul 1358 784 1285; Add 1620 1620 1358; Add 1529 1529 1130;
  Mul 1505 1304 1505; Add 1292 1292 1505; Mul 1292 20 1292; Add 1529 1529 1292; Add 1172 1172 1529;
  Mul 1638 1153 1638; Add 1645 1645 1638; Mul 1645 37 1645; Add 1172 1172 1645; Add 1608 1608 1172;
  Mul 1520 1212 1520; Add 1302 1302 1520; Mul 1302 80 1302; Add 1608 1608 1302; Add 1595 1595 1608;
  Mul 1554 1293 1554; Add 1461 1461 1554; Mul 1461 100 1461; Sub 1595 1595 1461; Mul 1595 536 1595;
  Mul 1461 496 1589; Add 1595 1595 1461; Add 1620 1620 1595; Sub 1657 1657 1620; Mul 1620 546 1522;
  Mul 1595 538 1053; Add 1620 1620 1595; Mul 1595 791 1698; Mul 1209 215 1209; Mul 1461 222 1171;
  Add 1209 1209 1461; Mul 1467 216 1467; Mul 1461 229 1217; Sub 1467 1467 1461; Sub 1209 1209 1467;
  Mul 1467 540 1079; Mul 1461 227 1495; Sub 1467 1467 1461; Mul 1461 544 1180; Mul 1302 219 1683;
  Add 1461 1461 1302; Sub 1467 1467 1461; Add 1209 1209 1467; Mul 1467 526 1415; Mul 1461 543 1285;
  Add 1467 1467 1461; Mul 1698 536 1698; Mul 1461 537 1589; Add 1698 1698 1461; Sub 1467 1467 1698;
  Sub 1467 1209 1467; Mul 1467 141 1467; Mul 1698 537 1467; Add 1595 1595 1698; Sub 1620 1620 1595;
  Add 1657 1657 1620; Mul 1620 556 1445; Mul 1256 560 1256; Add 1595 1620 1256; Sub 1169 1595 1169;
  Sub 1278 1594 1278; Sub 1062 1284 1062; Add 1278 1278 1062; Add 1256 1256 1620; Sub 1218 1218 1256;
  Add 1278 1278 1218; Sub 1169 1169 1278; Mul 1278 570 1563; Mul 1469 574 1469; Add 1218 1278 1469;
  Sub 1440 1218 1440; Sub 1547 1547 1605; Sub 1460 1460 1453; Add 1547 1547 1460; Add 1469 1469 1278;
  Sub 1481 1481 1469; Add 1547 1547 1481; Sub 1440 1440 1547; Mul 1547 584 1229; Mul 1219 588 1219;
  Add 1481 1547 1219; Sub 1150 1481 1150; Sub 1556 1556 1362; Sub 1340 1340 1170; Add 1556 1556 1340;
  Add 1219 1219 1547; Sub 1660 1660 1219; Add 1556 1556 1660; Sub 1150 1150 1556; Mul 1556 597 1149;
  Mul 1650 601 1650; Add 1660 1556 1650; Sub 1510 1660 1510; Sub 1583 1583 1471; Sub 1409 1409 1562;
  Add 1583 1583 1409; Add 1650 1650 1556; Sub 1103 1103 1650; Add 1583 1583 1103; Sub 1510 1510 1583;
  Mul 1583 610 1585; Mul 1127 614 1127; Add 1103 1583 1127; Sub 1633 1103 1633; Sub 1692 1692 1458;
  Sub 1575 1575 1129; Add 1692 1692 1575; Add 1127 1127 1583; Sub 1599 1599 1127].
Definition casadi_f0_589 : list instruction := [
  Add 1692 1692 1599; Sub 1633 1633 1692; Add 1510 1510 1633; Add 1150 1150 1510; Add 1440 1440 1150;
  Add 1169 1169 1440; Mul 1169 216 1169; Mul 1692 251 1217; Sub 1169 1169 1692; Mul 1692 230 1110;
  Mul 1175 225 1175; Add 1599 1692 1175; Mul 1347 231 1347; Mul 1583 223 1215; Sub 1347 1347 1583;
  Sub 1599 1599 1347; Mul 1442 560 1442; Mul 1583 553 1445; Add 1575 1442 1583; Mul 1549 244 1549;
  Mul 1610 248 1610; Add 1129 1549 1610; Sub 1575 1575 1129; Sub 1599 1599 1575; Mul 1445 558 1445;
  Mul 1477 560 1477; Add 1575 1445 1477; Mul 1392 243 1392; Mul 1400 249 1400; Add 1129 1392 1400;
  Sub 1575 1575 1129; Add 1599 1599 1575; Mul 1690 219 1690; Mul 1180 239 1180; Add 1690 1690 1180;
  Mul 1051 227 1051; Mul 1079 246 1079; Add 1051 1051 1079; Add 1690 1690 1051; Mul 1441 467 1441;
  Mul 1335 525 1335; Sub 1441 1441 1335; Add 1690 1690 1441; Mul 1656 231 1656; Mul 1441 559 1215;
  Sub 1656 1656 1441; Mul 1441 616 1110; Mul 1254 225 1254; Add 1441 1441 1254; Add 1656 1656 1441;
  Add 1690 1690 1656; Mul 1690 213 1690; Sub 1599 1599 1690; Mul 1656 572 1563; Mul 1388 574 1388;
  Add 1441 1656 1388; Mul 1567 284 1567; Mul 1552 258 1552; Add 1254 1567 1552; Sub 1441 1441 1254;
  Mul 1254 297 1550; Mul 1335 271 1412; Add 1051 1254 1335; Mul 1079 282 1685; Mul 1180 300 1386;
  Add 1575 1079 1180; Add 1051 1051 1575; Mul 1370 574 1370; Mul 1563 567 1563; Add 1575 1370 1563;
  Mul 1137 279 1137; Mul 1632 276 1632; Add 1129 1137 1632; Sub 1575 1575 1129; Add 1051 1051 1575;
  Sub 1441 1441 1051; Mul 1113 255 1113; Mul 1051 280 1237; Add 1113 1113 1051; Mul 1627 278 1627;
  Mul 1051 266 1179; Add 1627 1627 1051; Add 1113 1113 1627; Mul 1493 296 1493; Mul 1151 472 1151;
  Add 1493 1493 1151; Add 1113 1113 1493; Mul 1493 573 1386; Mul 1566 282 1566; Add 1493 1493 1566;
  Mul 1566 617 1550; Mul 1146 271 1146; Add 1566 1566 1146; Sub 1493 1493 1566; Add 1113 1113 1493;
  Mul 1113 213 1113; Sub 1441 1441 1113; Mul 1493 586 1229; Mul 1272 588 1272; Add 1566 1493 1272;
  Mul 1289 338 1289; Mul 1411 312 1411; Add 1146 1289 1411; Sub 1566 1566 1146; Mul 1146 351 1507;
  Mul 1151 325 1607; Add 1627 1146 1151; Mul 1051 336 1287; Mul 1575 354 1198; Add 1129 1051 1575;
  Add 1627 1627 1129; Mul 1577 588 1577; Mul 1229 581 1229; Add 1129 1577 1229; Mul 1082 333 1082;
  Mul 1398 330 1398; Add 1458 1082 1398; Sub 1129 1129 1458; Add 1627 1627 1129; Sub 1566 1566 1627;
  Mul 1017 309 1017; Mul 1627 334 1568; Add 1017 1017 1627; Mul 1473 332 1473; Mul 1627 320 1205;
  Add 1473 1473 1627; Add 1017 1017 1473; Mul 1365 349 1365; Mul 1695 474 1695; Add 1365 1365 1695;
  Add 1017 1017 1365; Mul 1365 587 1198; Mul 1373 336 1373; Add 1365 1365 1373; Mul 1373 619 1507;
  Mul 1511 325 1511; Add 1373 1373 1511; Sub 1365 1365 1373; Add 1017 1017 1365; Mul 1017 213 1017;
  Sub 1566 1566 1017; Mul 1365 599 1149; Mul 1348 601 1348; Add 1373 1365 1348; Mul 1438 393 1438;
  Mul 1252 366 1252; Add 1511 1438 1252; Sub 1373 1373 1511; Mul 1511 406 1310].
Definition casadi_f0_590 : list instruction := [
  Mul 1695 381 1602; Add 1473 1511 1695; Mul 1627 391 1303; Mul 1129 409 1700; Add 1458 1627 1129;
  Add 1473 1473 1458; Mul 1433 601 1433; Mul 1149 594 1149; Add 1458 1433 1149; Mul 1503 388 1503;
  Mul 1527 385 1527; Add 1556 1503 1527; Sub 1458 1458 1556; Add 1473 1473 1458; Sub 1373 1373 1473;
  Mul 1401 363 1401; Mul 1473 389 1664; Add 1401 1401 1473; Mul 1037 387 1037; Mul 1473 374 1297;
  Add 1037 1037 1473; Add 1401 1401 1037; Mul 1363 405 1363; Mul 1022 476 1022; Add 1363 1363 1022;
  Add 1401 1401 1363; Mul 1363 600 1700; Mul 1693 391 1693; Add 1363 1363 1693; Mul 1693 621 1310;
  Mul 1413 381 1413; Add 1693 1693 1413; Sub 1363 1363 1693; Add 1401 1401 1363; Mul 1401 213 1401;
  Sub 1373 1373 1401; Mul 1363 612 1585; Mul 1216 614 1216; Add 1693 1363 1216; Mul 1343 447 1343;
  Mul 1603 420 1603; Add 1413 1343 1603; Sub 1693 1693 1413; Mul 1413 460 1427; Mul 1022 434 1316;
  Add 1037 1413 1022; Mul 1473 445 1139; Mul 1458 463 1617; Add 1556 1473 1458; Add 1037 1037 1556;
  Mul 1454 614 1454; Mul 1585 607 1585; Add 1556 1454 1585; Mul 1096 442 1096; Mul 1394 439 1394;
  Add 1409 1096 1394; Sub 1556 1556 1409; Add 1037 1037 1556; Sub 1693 1693 1037; Mul 1037 417 1086;
  Mul 1556 443 1055; Add 1037 1037 1556; Mul 1556 441 1200; Mul 1409 426 1074; Add 1556 1556 1409;
  Add 1037 1037 1556; Mul 1556 459 1611; Mul 1241 478 1241; Add 1556 1556 1241; Add 1037 1037 1556;
  Mul 1556 611 1617; Mul 1494 445 1494; Add 1556 1556 1494; Mul 1494 623 1427; Mul 1332 434 1332;
  Add 1494 1494 1332; Sub 1556 1556 1494; Add 1037 1037 1556; Mul 1037 213 1037; Sub 1693 1693 1037;
  Add 1373 1373 1693; Add 1566 1566 1373; Add 1441 1441 1566; Add 1599 1599 1441; Mul 1599 215 1599;
  Mul 1556 470 1171; Add 1599 1599 1556; Sub 1169 1169 1599; Mul 1599 225 1487; Mul 1556 624 1110;
  Add 1494 1599 1556; Mul 1332 231 1106; Mul 1241 650 1215; Sub 1332 1332 1241; Sub 1494 1494 1332;
  Mul 1565 213 1565; Add 1241 1494 1565; Mul 1386 655 1386; Mul 1604 282 1604; Add 1409 1386 1604;
  Sub 1409 1380 1409; Mul 1364 271 1364; Mul 1550 629 1550; Add 1562 1364 1550; Add 1409 1409 1562;
  Mul 1168 213 1168; Sub 1562 1409 1168; Mul 1198 659 1198; Mul 1317 336 1317; Add 1471 1198 1317;
  Sub 1471 1312 1471; Mul 1081 325 1081; Mul 1507 634 1507; Add 1547 1081 1507; Add 1471 1471 1547;
  Mul 1555 213 1555; Sub 1547 1471 1555; Mul 1700 663 1700; Mul 1024 391 1024; Add 1340 1700 1024;
  Sub 1340 1183 1340; Mul 1319 381 1319; Mul 1310 639 1310; Add 1170 1319 1310; Add 1340 1340 1170;
  Mul 1424 213 1424; Sub 1170 1340 1424; Mul 1362 667 1617; Mul 1540 445 1540; Add 1278 1362 1540;
  Sub 1278 1352 1278; Mul 1606 434 1606; Mul 1460 644 1427; Add 1453 1606 1460; Add 1278 1278 1453;
  Mul 1206 213 1206; Sub 1453 1278 1206; Add 1170 1170 1453; Add 1547 1547 1170; Add 1562 1562 1547;
  Add 1241 1241 1562; Mul 1241 540 1241; Mul 1605 250 1495; Sub 1241 1241 1605; Mul 1106 225 1106;
  Mul 1110 650 1110; Add 1605 1106 1110; Mul 1487 231 1487; Mul 1215 624 1215].
Definition casadi_f0_591 : list instruction := [
  Sub 1487 1487 1215; Add 1110 1110 1106; Mul 1459 242 1459; Mul 1243 626 1243; Sub 1459 1459 1243;
  Add 1243 1110 1459; Add 1106 1487 1243; Sub 1106 1605 1106; Add 1605 1605 1459; Add 1487 1487 1605;
  Sub 1110 1110 1487; Sub 1106 1106 1110; Sub 1102 1102 1060; Sub 1152 1152 1402; Sub 1102 1102 1152;
  Sub 1431 1431 1318; Sub 1225 1225 1675; Sub 1431 1431 1225; Sub 1235 1235 1242; Sub 1104 1104 1282;
  Sub 1235 1235 1104; Sub 1093 1093 1496; Sub 1601 1601 1075; Sub 1093 1093 1601; Add 1235 1235 1093;
  Add 1431 1431 1235; Add 1102 1102 1431; Add 1106 1106 1102; Mul 1601 544 1106; Mul 1075 806 1683;
  Add 1601 1601 1075; Add 1241 1241 1601; Sub 1169 1169 1241; Add 1657 1657 1169; Mul 1657 216 1657;
  Mul 1169 652 1217; Sub 1657 1657 1169; Mul 1169 804 1171; Mul 1419 508 1419; Mul 1241 521 1248;
  Add 1419 1419 1241; Add 1667 1667 1505; Mul 1667 20 1667; Add 1526 1526 1346; Sub 1667 1667 1526;
  Sub 1279 1667 1279; Add 1107 1107 1638; Mul 1107 37 1107; Add 1279 1279 1107; Sub 1188 1279 1188;
  Add 1277 1277 1520; Mul 1277 80 1277; Add 1188 1188 1277; Add 1517 1517 1188; Sub 1231 1231 1554;
  Mul 1231 100 1231; Add 1517 1517 1231; Mul 1517 526 1517; Mul 1231 499 1285; Add 1517 1517 1231;
  Mul 1538 536 1538; Mul 1231 784 1589; Add 1538 1538 1231; Add 1517 1517 1538; Sub 1419 1419 1517;
  Mul 1415 791 1415; Mul 1467 543 1467; Add 1415 1415 1467; Mul 1522 539 1522; Mul 1467 538 1301;
  Add 1522 1522 1467; Sub 1415 1415 1522; Add 1419 1419 1415; Add 1175 1175 1692; Sub 1175 1175 1347;
  Add 1400 1400 1392; Add 1477 1477 1445; Sub 1400 1400 1477; Sub 1175 1175 1400; Add 1610 1610 1549;
  Add 1583 1583 1442; Sub 1610 1610 1583; Add 1175 1175 1610; Add 1175 1175 1690; Add 1632 1632 1137;
  Add 1563 1563 1370; Sub 1632 1632 1563; Add 1180 1180 1079; Add 1335 1335 1254; Add 1180 1180 1335;
  Add 1552 1552 1567; Add 1388 1388 1656; Sub 1552 1552 1388; Add 1180 1180 1552; Sub 1632 1632 1180;
  Add 1632 1632 1113; Add 1398 1398 1082; Add 1229 1229 1577; Sub 1398 1398 1229; Add 1575 1575 1051;
  Add 1151 1151 1146; Add 1575 1575 1151; Add 1411 1411 1289; Add 1272 1272 1493; Sub 1411 1411 1272;
  Add 1575 1575 1411; Sub 1398 1398 1575; Add 1398 1398 1017; Add 1527 1527 1503; Add 1149 1149 1433;
  Sub 1527 1527 1149; Add 1129 1129 1627; Add 1695 1695 1511; Add 1129 1129 1695; Add 1252 1252 1438;
  Add 1348 1348 1365; Sub 1252 1252 1348; Add 1129 1129 1252; Sub 1527 1527 1129; Add 1527 1527 1401;
  Add 1394 1394 1096; Add 1585 1585 1454; Sub 1394 1394 1585; Add 1458 1458 1473; Add 1022 1022 1413;
  Add 1458 1458 1022; Add 1603 1603 1343; Add 1216 1216 1363; Sub 1603 1603 1216; Add 1458 1458 1603;
  Sub 1394 1394 1458; Add 1394 1394 1037; Add 1527 1527 1394; Add 1398 1398 1527; Add 1632 1632 1398;
  Add 1175 1175 1632; Mul 1175 216 1175; Mul 1037 507 1217; Sub 1175 1175 1037; Add 1284 1284 1594;
  Sub 1256 1256 1652; Sub 1284 1284 1256; Sub 1541 1541 1595; Add 1284 1284 1541; Add 1574 1574 1258;
  Sub 1469 1469 1321; Sub 1574 1574 1469; Sub 1224 1224 1218; Add 1574 1574 1224].
Definition casadi_f0_592 : list instruction := [
  Add 1384 1384 1535; Sub 1219 1219 1133; Sub 1384 1384 1219; Sub 1548 1548 1481; Add 1384 1384 1548;
  Add 1350 1350 1648; Sub 1650 1650 1190; Sub 1350 1350 1650; Sub 1228 1228 1660; Add 1350 1350 1228;
  Add 1247 1247 1448; Sub 1127 1127 1088; Sub 1247 1247 1127; Sub 1232 1232 1103; Add 1247 1247 1232;
  Add 1350 1350 1247; Add 1384 1384 1350; Add 1574 1574 1384; Add 1284 1284 1574; Mul 1284 215 1284;
  Mul 1232 226 1171; Add 1284 1284 1232; Sub 1175 1175 1284; Sub 1605 1605 1243; Sub 1148 1148 1543;
  Sub 1533 1533 1682; Sub 1449 1449 1268; Sub 1087 1087 1420; Add 1449 1449 1087; Add 1533 1533 1449;
  Add 1148 1148 1533; Add 1605 1605 1148; Mul 1420 540 1605; Mul 1268 805 1495; Sub 1420 1420 1268;
  Add 1556 1556 1599; Sub 1332 1332 1556; Sub 1556 1332 1565; Add 1604 1604 1386; Add 1550 1550 1364;
  Add 1380 1380 1550; Sub 1604 1604 1380; Add 1380 1604 1168; Add 1317 1317 1198; Add 1507 1507 1081;
  Add 1312 1312 1507; Sub 1317 1317 1312; Add 1312 1317 1555; Add 1024 1024 1700; Add 1310 1310 1319;
  Add 1183 1183 1310; Sub 1024 1024 1183; Add 1183 1024 1424; Add 1540 1540 1362; Add 1460 1460 1606;
  Add 1352 1352 1460; Sub 1540 1540 1352; Add 1352 1540 1206; Add 1183 1183 1352; Add 1312 1312 1183;
  Add 1380 1380 1312; Add 1556 1556 1380; Mul 1556 544 1556; Mul 1460 693 1683; Add 1556 1556 1460;
  Add 1420 1420 1556; Sub 1175 1175 1420; Add 1419 1419 1175; Mul 1419 215 1419; Add 1169 1169 1419;
  Sub 1657 1657 1169; Sub 1494 1494 1565; Add 1409 1409 1168; Add 1471 1471 1555; Add 1340 1340 1424;
  Add 1278 1278 1206; Add 1340 1340 1278; Add 1471 1471 1340; Add 1409 1409 1471; Add 1494 1494 1409;
  Mul 1494 216 1494; Mul 1169 305 1217; Sub 1494 1494 1169; Mul 1605 215 1605; Mul 1169 805 1171;
  Add 1605 1605 1169; Sub 1494 1494 1605; Add 1053 1053 1494; Mul 1053 540 1053; Mul 1494 307 1495;
  Sub 1053 1053 1494; Mul 1494 360 1683; Mul 1106 216 1106; Mul 1605 806 1217; Sub 1106 1106 1605;
  Add 1332 1332 1565; Sub 1604 1604 1168; Sub 1317 1317 1555; Sub 1024 1024 1424; Sub 1540 1540 1206;
  Add 1024 1024 1540; Add 1317 1317 1024; Add 1604 1604 1317; Add 1332 1332 1604; Mul 1332 215 1332;
  Mul 1206 700 1171; Add 1332 1332 1206; Sub 1106 1106 1332; Add 1301 1301 1106; Mul 1301 544 1301;
  Add 1494 1494 1301; Add 1053 1053 1494; Sub 1657 1657 1053; Mul 1657 1 1657; Mul 1053 469 1483;
  Add 1657 1657 1053; Add 1071 1071 1657; Mul 1657 602 1539; Mul 1053 783 1367; Add 1657 1657 1053;
  Mul 1053 670 1608; Mul 1494 488 1403; Add 1053 1053 1494; Add 1657 1657 1053; Mul 1053 671 1444;
  Mul 1494 532 1141; Add 1053 1053 1494; Sub 1657 1657 1053; Mul 1053 679 1642; Mul 1494 523 1663;
  Add 1053 1053 1494; Mul 1494 796 1327; Mul 1237 680 1237; Mul 1301 255 1564; Add 1237 1237 1301;
  Mul 1179 674 1179; Mul 1301 278 1476; Sub 1179 1179 1301; Sub 1237 1237 1179; Mul 1676 216 1676;
  Mul 1179 294 1217; Sub 1676 1676 1179; Mul 1628 215 1628; Mul 1179 299 1171; Add 1628 1628 1179;
  Add 1676 1676 1628; Sub 1237 1237 1676; Mul 1676 670 1327; Mul 1628 502 1403].
Definition casadi_f0_593 : list instruction := [
  Add 1676 1676 1628; Mul 1628 602 1077; Mul 1179 505 1367; Add 1628 1628 1179; Sub 1676 1676 1628;
  Sub 1676 1237 1676; Mul 1676 672 1676; Mul 1628 502 1676; Add 1494 1494 1628; Sub 1053 1053 1494;
  Add 1657 1657 1053; Mul 1053 674 1562; Mul 1494 794 1476; Sub 1053 1053 1494; Mul 1494 680 1102;
  Mul 1628 689 1564; Add 1179 1494 1628; Add 1173 1173 1021; Add 1019 1019 1295; Add 1412 1412 1019;
  Sub 1173 1173 1412; Add 1412 1173 1114; Add 1276 1276 1115; Add 1488 1488 1145; Add 1607 1607 1488;
  Sub 1276 1276 1607; Add 1607 1276 1699; Add 1456 1456 1501; Add 1500 1500 1213; Add 1602 1602 1500;
  Sub 1456 1456 1602; Add 1602 1456 1192; Add 1616 1616 1337; Add 1261 1261 1416; Add 1316 1316 1261;
  Sub 1616 1616 1316; Add 1316 1616 1227; Add 1602 1602 1316; Add 1607 1607 1602; Add 1412 1412 1607;
  Mul 1412 676 1412; Mul 1261 410 1662; Add 1412 1412 1261; Sub 1179 1179 1412; Add 1053 1053 1179;
  Mul 1179 215 1441; Mul 1412 461 1171; Add 1179 1179 1412; Mul 1440 216 1440; Mul 1412 277 1217;
  Sub 1440 1440 1412; Sub 1179 1179 1440; Add 1053 1053 1179; Add 1657 1657 1053; Mul 1657 216 1657;
  Mul 1053 707 1217; Sub 1657 1657 1053; Mul 1053 793 1171; Mul 1179 602 1188; Mul 1412 491 1367;
  Add 1179 1179 1412; Mul 1412 670 1539; Mul 1261 783 1403; Add 1412 1412 1261; Add 1179 1179 1412;
  Mul 1412 671 1376; Mul 1261 517 1141; Add 1412 1412 1261; Sub 1179 1179 1412; Mul 1412 796 1077;
  Mul 1261 505 1676; Add 1412 1412 1261; Mul 1261 675 1642; Mul 1416 523 1123; Add 1261 1261 1416;
  Sub 1412 1412 1261; Add 1179 1179 1412; Mul 1412 674 1148; Mul 1261 682 1476; Sub 1412 1412 1261;
  Mul 1261 680 1380; Mul 1416 808 1564; Add 1261 1261 1416; Add 1421 1421 1478; Sub 1685 1685 1421;
  Add 1452 1452 1649; Add 1685 1685 1452; Sub 1452 1685 1468; Add 1134 1134 1694; Sub 1287 1287 1134;
  Add 1233 1233 1195; Add 1287 1287 1233; Sub 1233 1287 1135; Add 1018 1018 1122; Sub 1303 1303 1018;
  Add 1474 1474 1451; Add 1303 1303 1474; Sub 1474 1303 1641; Add 1639 1639 1091; Sub 1139 1139 1639;
  Add 1450 1450 1189; Add 1139 1139 1450; Sub 1450 1139 1613; Add 1474 1474 1450; Add 1233 1233 1474;
  Add 1452 1452 1233; Mul 1452 676 1452; Mul 1189 301 1662; Add 1452 1452 1189; Sub 1261 1261 1452;
  Add 1261 1412 1261; Mul 1574 215 1574; Mul 1452 303 1171; Add 1189 1574 1452; Mul 1639 216 1632;
  Mul 1091 468 1217; Sub 1639 1639 1091; Sub 1189 1189 1639; Add 1261 1261 1189; Add 1179 1179 1261;
  Mul 1179 215 1179; Add 1053 1053 1179; Sub 1179 1657 1053; Mul 1148 215 1148; Mul 1261 682 1171;
  Add 1189 1148 1261; Mul 1639 216 1409; Mul 1091 792 1217; Sub 1639 1639 1091; Sub 1189 1189 1639;
  Add 1663 1663 1189; Mul 1189 540 1663; Mul 1639 233 1495; Sub 1189 1189 1639; Mul 1639 789 1683;
  Mul 1091 215 1604; Mul 1451 686 1171; Add 1091 1091 1451; Mul 1102 216 1102; Mul 1451 689 1217;
  Sub 1102 1102 1451; Sub 1091 1091 1102; Add 1123 1123 1091; Mul 1091 544 1123; Add 1639 1639 1091;
  Add 1189 1189 1639; Sub 1179 1179 1189; Mul 1179 2 1179; Mul 1189 285 1570].
Definition casadi_f0_594 : list instruction := [
  Add 1179 1179 1189; Add 1071 1071 1179; Mul 1179 677 1349; Mul 1189 530 1588; Add 1179 1179 1189;
  Mul 1189 706 1621; Mul 1639 782 1407; Add 1189 1189 1639; Mul 1639 712 1172; Mul 1091 481 1491;
  Add 1639 1639 1091; Add 1189 1189 1639; Sub 1179 1179 1189; Mul 1189 719 1654; Mul 1639 519 1655;
  Add 1189 1189 1639; Mul 1639 709 1049; Mul 1147 216 1147; Mul 1091 348 1217; Sub 1147 1147 1091;
  Mul 1167 215 1167; Mul 1091 353 1171; Add 1167 1167 1091; Add 1147 1147 1167; Mul 1205 714 1205;
  Mul 1167 332 1354; Add 1205 1205 1167; Mul 1568 718 1568; Mul 1167 309 1653; Add 1568 1568 1167;
  Sub 1205 1205 1568; Add 1147 1147 1205; Mul 1205 706 1417; Mul 1568 497 1407; Add 1205 1205 1568;
  Mul 1568 712 1049; Mul 1167 494 1491; Add 1568 1568 1167; Sub 1205 1205 1568; Sub 1205 1147 1205;
  Mul 1205 156 1205; Mul 1568 494 1205; Add 1639 1639 1568; Sub 1189 1189 1639; Add 1179 1179 1189;
  Mul 1189 716 1607; Mul 1639 403 1609; Add 1189 1189 1639; Mul 1639 718 1431; Mul 1568 696 1653;
  Add 1167 1639 1568; Sub 1189 1189 1167; Mul 1167 714 1547; Mul 1091 797 1354; Add 1167 1167 1091;
  Sub 1189 1189 1167; Mul 1150 216 1150; Mul 1167 331 1217; Sub 1150 1150 1167; Mul 1167 215 1566;
  Mul 1091 414 1171; Add 1167 1167 1091; Sub 1167 1150 1167; Add 1189 1189 1167; Add 1179 1179 1189;
  Mul 1179 216 1179; Mul 1189 790 1217; Sub 1179 1179 1189; Mul 1189 704 1171; Mul 1167 677 1132;
  Mul 1091 513 1588; Add 1167 1167 1091; Mul 1091 706 1279; Mul 1451 483 1407; Add 1091 1091 1451;
  Mul 1451 712 1621; Mul 1018 782 1491; Add 1451 1451 1018; Add 1091 1091 1451; Sub 1167 1167 1091;
  Mul 1091 709 1417; Mul 1451 497 1205; Add 1091 1091 1451; Mul 1451 711 1654; Mul 1018 519 1255;
  Add 1451 1451 1018; Sub 1091 1091 1451; Add 1167 1167 1091; Mul 1091 716 1233; Mul 1451 293 1609;
  Add 1091 1091 1451; Mul 1451 718 1312; Mul 1018 415 1653; Add 1451 1451 1018; Sub 1091 1091 1451;
  Mul 1451 714 1533; Mul 1018 685 1354; Add 1122 1451 1018; Sub 1091 1091 1122; Mul 1122 216 1398;
  Mul 1195 416 1217; Sub 1122 1122 1195; Mul 1384 215 1384; Mul 1195 357 1171; Add 1134 1384 1195;
  Sub 1122 1122 1134; Add 1091 1091 1122; Add 1167 1167 1091; Mul 1167 215 1167; Add 1189 1189 1167;
  Sub 1167 1179 1189; Mul 1091 216 1471; Mul 1122 795 1217; Sub 1091 1091 1122; Mul 1533 215 1533;
  Mul 1122 685 1171; Add 1134 1533 1122; Sub 1091 1091 1134; Add 1655 1655 1091; Mul 1091 540 1655;
  Mul 1134 697 1495; Sub 1091 1091 1134; Mul 1134 695 1683; Mul 1431 216 1431; Mul 1694 696 1217;
  Sub 1431 1431 1694; Mul 1694 215 1317; Mul 1649 448 1171; Add 1694 1694 1649; Sub 1694 1431 1694;
  Add 1255 1255 1694; Mul 1694 544 1255; Add 1134 1134 1694; Add 1091 1091 1134; Sub 1091 1167 1091;
  Mul 1091 3 1091; Mul 1134 691 1253; Add 1091 1091 1134; Add 1071 1071 1091; Mul 1091 715 1097;
  Mul 1134 606 1244; Add 1091 1091 1134; Mul 1134 721 1529; Mul 1694 786 1120; Add 1134 1134 1694;
  Add 1091 1091 1134; Mul 1134 722 1389; Mul 1694 528 1124; Add 1134 1134 1694].
Definition casadi_f0_595 : list instruction := [
  Add 1091 1091 1134; Mul 1134 730 1143; Mul 1694 515 1283; Add 1134 1134 1694; Mul 1694 683 1455;
  Mul 1345 310 1345; Mul 1649 408 1644; Add 1345 1345 1649; Mul 1582 327 1582; Mul 1649 404 1320;
  Add 1582 1582 1649; Sub 1345 1345 1582; Mul 1664 731 1664; Mul 1582 363 1546; Add 1664 1664 1582;
  Mul 1297 725 1297; Mul 1582 387 1677; Add 1297 1297 1582; Sub 1664 1664 1297; Add 1345 1345 1664;
  Mul 1664 721 1455; Mul 1297 486 1120; Add 1664 1664 1297; Mul 1297 715 1571; Mul 1582 489 1244;
  Add 1297 1297 1582; Sub 1664 1664 1297; Sub 1664 1345 1664; Mul 1664 723 1664; Mul 1297 486 1664;
  Add 1694 1694 1297; Sub 1134 1134 1694; Add 1091 1091 1134; Mul 1134 725 1170; Mul 1694 800 1677;
  Add 1134 1134 1694; Mul 1694 731 1235; Mul 1297 703 1546; Add 1582 1694 1297; Mul 1649 727 1602;
  Mul 1421 306 1432; Add 1649 1649 1421; Add 1582 1582 1649; Add 1134 1134 1582; Mul 1582 310 1373;
  Mul 1649 361 1644; Add 1582 1582 1649; Mul 1510 327 1510; Mul 1649 386 1320; Add 1421 1510 1649;
  Mul 1478 318 1502; Mul 1416 59 1034; Add 1478 1478 1416; Add 1421 1421 1478; Add 1582 1582 1421;
  Sub 1134 1134 1582; Add 1091 1091 1134; Mul 1134 216 1091; Mul 1582 690 1217; Sub 1134 1134 1582;
  Mul 1582 807 1171; Mul 1421 715 1667; Mul 1478 705 1244; Add 1421 1421 1478; Mul 1478 721 1097;
  Mul 1416 606 1120; Add 1478 1478 1416; Add 1421 1421 1478; Mul 1478 722 1697; Mul 1416 510 1124;
  Add 1478 1478 1416; Add 1421 1421 1478; Mul 1478 683 1571; Mul 1416 489 1664; Add 1478 1478 1416;
  Mul 1416 726 1143; Mul 1337 515 1447; Add 1416 1416 1337; Sub 1478 1478 1416; Add 1421 1421 1478;
  Mul 1478 725 1449; Mul 1416 692 1677; Add 1337 1478 1416; Mul 1500 731 1183; Mul 1213 465 1546;
  Add 1500 1500 1213; Mul 1213 727 1474; Mul 1501 785 1432; Add 1213 1213 1501; Add 1500 1500 1213;
  Add 1337 1337 1500; Mul 1350 310 1350; Mul 1500 412 1644; Add 1213 1350 1500; Mul 1501 327 1527;
  Mul 1488 407 1320; Add 1501 1501 1488; Mul 1488 318 1646; Mul 1145 580 1034; Add 1488 1488 1145;
  Add 1501 1501 1488; Add 1213 1213 1501; Sub 1337 1337 1213; Add 1421 1421 1337; Mul 1337 215 1421;
  Add 1582 1582 1337; Sub 1337 1134 1582; Mul 1449 310 1449; Mul 1213 692 1644; Add 1501 1449 1213;
  Mul 1488 327 1340; Mul 1145 798 1320; Add 1488 1488 1145; Mul 1145 318 1686; Mul 1115 640 1034;
  Add 1145 1145 1115; Add 1488 1488 1145; Add 1501 1501 1488; Sub 1283 1283 1501; Mul 1501 540 1283;
  Mul 1488 811 1495; Sub 1501 1501 1488; Mul 1488 813 1683; Mul 1145 310 1024; Mul 1115 464 1644;
  Add 1145 1145 1115; Mul 1235 327 1235; Mul 1115 703 1320; Add 1019 1235 1115; Mul 1295 318 1226;
  Mul 1021 662 1034; Add 1295 1295 1021; Add 1019 1019 1295; Add 1145 1145 1019; Sub 1447 1447 1145;
  Mul 1145 544 1447; Add 1488 1488 1145; Add 1501 1501 1488; Sub 1501 1337 1501; Mul 1501 4 1501;
  Mul 1488 812 1355; Add 1501 1501 1488; Add 1071 1071 1501; Mul 1501 728 1108; Mul 1488 609 1518;
  Add 1501 1501 1488; Mul 1488 733 1130; Mul 1145 604 1333; Add 1488 1488 1145].
Definition casadi_f0_596 : list instruction := [
  Add 1501 1501 1488; Mul 1488 734 1200; Mul 1145 426 1353; Add 1488 1488 1145; Add 1501 1501 1488;
  Mul 1488 739 1090; Mul 1145 438 1140; Add 1488 1488 1145; Mul 1145 816 1617; Mul 1280 358 1280;
  Mul 1019 462 1651; Add 1280 1280 1019; Mul 1506 372 1506; Mul 1019 458 1250; Add 1506 1506 1019;
  Sub 1280 1280 1506; Mul 1055 741 1055; Mul 1506 417 1119; Add 1055 1055 1506; Mul 1074 736 1074;
  Mul 1506 441 1128; Add 1074 1074 1506; Sub 1055 1055 1074; Add 1280 1280 1055; Mul 1055 733 1617;
  Mul 1074 445 1333; Add 1055 1055 1074; Mul 1074 728 1427; Mul 1506 434 1518; Add 1074 1074 1506;
  Sub 1055 1055 1074; Sub 1280 1280 1055; Mul 1280 430 1280; Mul 1055 445 1280; Add 1145 1145 1055;
  Sub 1488 1488 1145; Add 1501 1501 1488; Mul 1488 736 1453; Mul 1145 803 1128; Add 1488 1488 1145;
  Mul 1145 741 1093; Mul 1055 710 1119; Add 1074 1145 1055; Mul 1506 738 1316; Mul 1019 356 1330;
  Add 1506 1506 1019; Add 1074 1074 1506; Add 1488 1488 1074; Mul 1074 358 1693; Mul 1506 352 1651;
  Add 1074 1074 1506; Mul 1633 372 1633; Mul 1506 440 1250; Add 1019 1633 1506; Mul 1295 369 1396;
  Mul 1021 36 1194; Add 1295 1295 1021; Add 1019 1019 1295; Add 1074 1074 1019; Sub 1488 1488 1074;
  Add 1501 1501 1488; Mul 1488 216 1501; Mul 1074 814 1217; Sub 1488 1488 1074; Mul 1074 817 1171;
  Mul 1518 13 1518; Mul 1019 728 1346; Sub 1518 1518 1019; Mul 1019 733 1108; Mul 1333 609 1333;
  Add 1019 1019 1333; Add 1518 1518 1019; Mul 1019 734 1086; Mul 1353 443 1353; Add 1019 1019 1353;
  Add 1518 1518 1019; Mul 1019 816 1427; Mul 1353 434 1280; Add 1019 1019 1353; Mul 1353 735 1090;
  Mul 1333 438 1479; Add 1353 1353 1333; Sub 1019 1019 1353; Add 1518 1518 1019; Mul 1019 736 1087;
  Mul 1353 699 1128; Add 1333 1019 1353; Mul 1295 741 1352; Mul 1021 394 1119; Add 1295 1295 1021;
  Mul 1021 738 1450; Mul 1301 245 1330; Add 1021 1021 1301; Add 1295 1295 1021; Add 1333 1333 1295;
  Mul 1247 358 1247; Mul 1295 466 1651; Add 1021 1247 1295; Mul 1301 372 1394; Mul 1106 359 1250;
  Add 1301 1301 1106; Mul 1106 369 1439; Mul 1332 593 1194; Add 1106 1106 1332; Add 1301 1301 1106;
  Add 1021 1021 1301; Sub 1333 1333 1021; Add 1518 1518 1333; Mul 1333 215 1518; Add 1074 1074 1333;
  Sub 1333 1488 1074; Mul 1087 358 1087; Mul 1021 699 1651; Add 1301 1087 1021; Mul 1106 372 1278;
  Mul 1332 801 1250; Add 1106 1106 1332; Mul 1332 369 1598; Mul 1206 645 1194; Add 1332 1332 1206;
  Add 1106 1106 1332; Add 1301 1301 1106; Sub 1140 1140 1301; Mul 1301 540 1140; Mul 1106 820 1495;
  Sub 1301 1301 1106; Mul 1106 822 1683; Mul 1332 358 1540; Mul 1206 457 1651; Add 1332 1332 1206;
  Mul 1093 372 1093; Mul 1206 710 1250; Add 1424 1093 1206; Mul 1555 369 1221; Mul 1168 666 1194;
  Add 1555 1555 1168; Add 1424 1424 1555; Add 1332 1332 1424; Sub 1479 1479 1332; Mul 1332 544 1479;
  Add 1106 1106 1332; Add 1301 1301 1106; Sub 1301 1333 1301; Mul 1301 5 1301; Mul 1106 821 1514;
  Add 1301 1301 1106; Add 1071 1071 1301; Mul 1222 85 1222; Mul 1109 79 1109].
Definition casadi_f0_597 : list instruction := [
  Sub 1222 1222 1109; Mul 1307 54 1307; Mul 1486 61 1486; Sub 1307 1307 1486; Mul 1186 19 1186;
  Mul 1486 763 1408; Sub 1186 1186 1486; Mul 1486 751 1201; Mul 1101 35 1101; Add 1486 1486 1101;
  Sub 1186 1186 1486; Mul 1234 55 1234; Mul 1174 62 1174; Sub 1234 1234 1174; Add 1186 1186 1234;
  Add 1307 1307 1186; Mul 1410 86 1410; Mul 1158 91 1158; Sub 1410 1410 1158; Add 1410 1307 1410;
  Add 1222 1222 1410; Mul 1443 102 1443; Sub 1443 1222 1443; Mul 1673 101 1673; Add 1443 1443 1673;
  Add 1071 1071 1443; Mul 1443 777 1071; Sub 1463 1463 1443; Add 1636 1636 1463; Div 1463 1322 92;
  Mul 1443 1023 1591; Sub 1463 1463 1443; Mul 1443 767 1463; Mul 1399 674 1399; Mul 1673 630 1476;
  Sub 1399 1399 1673; Mul 1673 654 1564; Mul 1484 680 1484; Add 1673 1673 1484; Add 1466 1466 1470;
  Sub 1673 1673 1466; Add 1399 1399 1673; Mul 1673 615 1171; Mul 1674 215 1674; Add 1673 1673 1674;
  Mul 1084 216 1084; Mul 1674 7 1217; Sub 1084 1084 1674; Sub 1673 1673 1084; Add 1399 1399 1673;
  Mul 1399 0 1399; Mul 1673 771 1245; Add 1399 1399 1673; Mul 1673 748 1165; Mul 1084 216 1642;
  Mul 1674 523 1217; Sub 1084 1084 1674; Add 1084 1476 1084; Mul 1084 672 1084; Mul 1674 545 1084;
  Sub 1673 1673 1674; Mul 1674 216 1327; Mul 1466 502 1217; Sub 1674 1674 1466; Mul 1466 215 1077;
  Mul 1470 505 1171; Add 1466 1466 1470; Add 1674 1674 1466; Sub 1674 1674 1662; Mul 1674 672 1674;
  Mul 1466 504 1674; Mul 1470 750 1209; Add 1466 1466 1470; Mul 1470 215 1642; Mul 1484 523 1171;
  Add 1470 1470 1484; Sub 1470 1564 1470; Mul 1470 672 1470; Mul 1484 541 1470; Mul 1410 627 1383;
  Add 1484 1484 1410; Sub 1466 1466 1484; Add 1673 1673 1466; Mul 1376 215 1376; Mul 1466 517 1171;
  Add 1376 1376 1466; Mul 1444 216 1444; Mul 1466 532 1217; Sub 1444 1444 1466; Sub 1376 1376 1444;
  Mul 1444 627 1327; Mul 1466 502 1470; Add 1444 1444 1466; Mul 1466 748 1077; Mul 1484 505 1084;
  Sub 1466 1466 1484; Sub 1444 1444 1466; Add 1376 1376 1444; Mul 1376 508 1376; Mul 1444 744 1248;
  Add 1376 1376 1444; Mul 1444 215 1539; Mul 1466 783 1171; Add 1444 1444 1466; Mul 1608 216 1608;
  Mul 1466 488 1217; Sub 1608 1608 1466; Sub 1444 1444 1608; Mul 1608 748 1642; Mul 1084 523 1084;
  Sub 1608 1608 1084; Mul 1327 750 1327; Mul 1084 502 1674; Add 1327 1327 1084; Sub 1608 1608 1327;
  Add 1444 1444 1608; Mul 1444 536 1444; Mul 1608 824 1589; Add 1444 1444 1608; Sub 1376 1376 1444;
  Mul 1188 215 1188; Mul 1444 491 1171; Add 1188 1188 1444; Mul 1539 216 1539; Mul 1444 783 1217;
  Sub 1539 1539 1444; Sub 1188 1188 1539; Mul 1077 750 1077; Mul 1674 505 1674; Add 1077 1077 1674;
  Mul 1642 627 1642; Mul 1470 523 1470; Add 1642 1642 1470; Sub 1077 1077 1642; Add 1188 1188 1077;
  Mul 1188 526 1188; Mul 1077 825 1285; Add 1188 1188 1077; Sub 1376 1376 1188; Add 1673 1673 1376;
  Mul 1409 674 1409; Mul 1376 792 1476; Sub 1409 1409 1376; Add 1628 1628 1494; Mul 1494 298 1662;
  Sub 1173 1173 1114; Sub 1276 1276 1699; Sub 1456 1456 1192; Sub 1616 1616 1227].
Definition casadi_f0_598 : list instruction := [
  Add 1456 1456 1616; Add 1276 1276 1456; Add 1173 1173 1276; Mul 1227 676 1173; Add 1494 1494 1227;
  Sub 1628 1628 1494; Add 1409 1409 1628; Mul 1628 468 1171; Mul 1632 215 1632; Add 1628 1628 1632;
  Sub 1628 1628 1440; Add 1409 1409 1628; Mul 1409 216 1409; Mul 1628 823 1217; Sub 1409 1409 1628;
  Mul 1628 686 1564; Mul 1604 680 1604; Add 1628 1628 1604; Mul 1604 232 1662; Add 1685 1685 1468;
  Add 1287 1287 1135; Add 1303 1303 1641; Add 1139 1139 1613; Add 1303 1303 1139; Add 1287 1287 1303;
  Add 1685 1685 1287; Mul 1613 676 1685; Add 1604 1604 1613; Sub 1628 1628 1604; Add 1412 1412 1628;
  Add 1452 1452 1574; Mul 1441 216 1441; Mul 1574 461 1217; Sub 1441 1441 1574; Sub 1452 1452 1441;
  Add 1412 1412 1452; Mul 1412 215 1412; Mul 1452 668 1171; Add 1412 1412 1452; Sub 1409 1409 1412;
  Add 1261 1261 1148; Mul 1562 216 1562; Mul 1148 794 1217; Sub 1562 1562 1148; Sub 1261 1261 1562;
  Mul 1261 540 1261; Mul 1562 664 1495; Sub 1261 1261 1562; Mul 1562 808 1171; Mul 1380 215 1380;
  Add 1562 1562 1380; Sub 1562 1562 1102; Mul 1562 544 1562; Mul 1102 642 1683; Add 1562 1562 1102;
  Add 1261 1261 1562; Sub 1409 1409 1261; Add 1673 1673 1409; Mul 1673 1 1673; Mul 1409 760 1483;
  Add 1673 1673 1409; Add 1399 1399 1673; Mul 1663 674 1663; Mul 1673 233 1476; Sub 1663 1663 1673;
  Mul 1673 789 1564; Mul 1123 680 1123; Add 1673 1673 1123; Mul 1123 637 1662; Mul 1685 215 1685;
  Mul 1409 232 1171; Add 1685 1685 1409; Mul 1173 216 1173; Mul 1409 298 1217; Sub 1173 1173 1409;
  Sub 1685 1685 1173; Add 1676 1676 1685; Mul 1676 676 1676; Add 1123 1123 1676; Sub 1673 1673 1123;
  Add 1663 1663 1673; Sub 1053 1053 1657; Add 1663 1663 1053; Mul 1663 2 1663; Mul 1053 826 1570;
  Add 1663 1663 1053; Add 1399 1399 1663; Mul 1663 674 1655; Mul 1053 697 1476; Sub 1663 1663 1053;
  Mul 1053 695 1564; Mul 1657 680 1255; Add 1053 1053 1657; Mul 1657 647 1662; Mul 1673 216 1276;
  Mul 1123 411 1217; Sub 1673 1673 1123; Mul 1123 215 1287; Mul 1676 302 1171; Add 1123 1123 1676;
  Sub 1673 1673 1123; Add 1205 1205 1673; Mul 1673 676 1205; Add 1657 1657 1673; Sub 1053 1053 1657;
  Add 1663 1663 1053; Sub 1189 1189 1179; Add 1663 1663 1189; Mul 1663 3 1663; Mul 1189 347 1253;
  Add 1663 1663 1189; Add 1399 1399 1663; Mul 1663 674 1283; Mul 1189 811 1476; Sub 1663 1663 1189;
  Mul 1189 813 1564; Mul 1179 680 1447; Add 1189 1189 1179; Mul 1179 802 1662; Mul 1053 310 1303;
  Mul 1657 252 1644; Add 1053 1053 1657; Mul 1657 327 1456; Mul 1673 339 1320; Add 1657 1657 1673;
  Mul 1325 318 1325; Mul 1673 701 1034; Add 1123 1325 1673; Add 1657 1657 1123; Add 1053 1053 1657;
  Sub 1664 1664 1053; Mul 1053 676 1664; Add 1179 1179 1053; Sub 1189 1189 1179; Add 1663 1663 1189;
  Sub 1582 1582 1134; Add 1663 1663 1582; Mul 1663 4 1663; Mul 1582 698 1355; Add 1663 1663 1582;
  Add 1399 1399 1663; Mul 1663 674 1140; Mul 1582 820 1476; Sub 1663 1663 1582; Mul 1582 822 1564;
  Mul 1134 680 1479; Add 1582 1582 1134; Mul 1134 788 1662; Mul 1189 358 1139].
Definition casadi_f0_599 : list instruction := [
  Mul 1179 234 1651; Add 1189 1189 1179; Mul 1179 372 1616; Mul 1053 355 1250; Add 1179 1179 1053;
  Mul 1199 369 1199; Mul 1053 708 1194; Add 1657 1199 1053; Add 1179 1179 1657; Add 1189 1189 1179;
  Sub 1280 1280 1189; Mul 1189 676 1280; Add 1134 1134 1189; Sub 1582 1582 1134; Add 1663 1663 1582;
  Sub 1074 1074 1488; Add 1663 1663 1074; Mul 1663 5 1663; Mul 1074 809 1514; Add 1663 1663 1074;
  Add 1399 1399 1663; Sub 1222 1222 1399; Mul 1399 778 1222; Add 1443 1443 1399; Sub 1636 1636 1443;
  Div 1443 1028 92; Mul 1399 1516 1591; Sub 1443 1443 1399; Mul 1399 775 1443; Add 1356 1356 1163;
  Mul 1163 658 1653; Mul 1634 718 1634; Add 1163 1163 1634; Sub 1356 1356 1163; Mul 1163 635 1354;
  Mul 1624 714 1624; Add 1163 1163 1624; Sub 1356 1356 1163; Mul 1210 216 1210; Mul 1163 90 1217;
  Sub 1210 1210 1163; Mul 1163 566 1171; Mul 1670 215 1670; Add 1163 1163 1670; Sub 1210 1210 1163;
  Add 1356 1356 1210; Mul 1356 0 1356; Mul 1210 818 1245; Add 1356 1356 1210; Mul 1210 216 1654;
  Mul 1163 519 1217; Sub 1210 1210 1163; Sub 1210 1210 1354; Mul 1210 156 1210; Mul 1163 545 1210;
  Mul 1670 684 1165; Add 1163 1163 1670; Mul 1670 216 1049; Mul 1624 494 1217; Sub 1670 1670 1624;
  Mul 1624 215 1417; Mul 1634 497 1171; Add 1624 1624 1634; Add 1670 1670 1624; Sub 1670 1609 1670;
  Mul 1670 156 1670; Mul 1624 504 1670; Mul 1634 660 1209; Add 1624 1624 1634; Mul 1634 215 1654;
  Mul 1663 519 1171; Add 1634 1634 1663; Sub 1634 1634 1653; Mul 1634 156 1634; Mul 1663 541 1634;
  Mul 1074 827 1383; Add 1663 1663 1074; Sub 1624 1624 1663; Add 1163 1163 1624; Mul 1349 216 1349;
  Mul 1624 530 1217; Sub 1349 1349 1624; Mul 1132 215 1132; Mul 1624 513 1171; Add 1132 1132 1624;
  Sub 1349 1349 1132; Mul 1132 827 1049; Mul 1624 494 1634; Add 1132 1132 1624; Mul 1624 684 1417;
  Mul 1663 497 1210; Add 1624 1624 1663; Sub 1132 1132 1624; Add 1349 1349 1132; Mul 1132 508 1349;
  Mul 1624 656 1248; Add 1132 1132 1624; Mul 1172 216 1172; Mul 1624 481 1217; Sub 1172 1172 1624;
  Mul 1624 215 1621; Mul 1663 782 1171; Add 1624 1624 1663; Sub 1172 1172 1624; Mul 1624 684 1654;
  Mul 1663 519 1210; Add 1624 1624 1663; Mul 1049 660 1049; Mul 1663 494 1670; Add 1049 1049 1663;
  Sub 1624 1624 1049; Add 1172 1172 1624; Mul 1624 536 1172; Mul 1049 829 1589; Add 1624 1624 1049;
  Sub 1132 1132 1624; Mul 1621 216 1621; Mul 1624 782 1217; Sub 1621 1621 1624; Mul 1279 215 1279;
  Mul 1624 483 1171; Add 1279 1279 1624; Sub 1621 1621 1279; Mul 1417 660 1417; Mul 1279 497 1670;
  Add 1417 1417 1279; Mul 1654 827 1654; Mul 1279 519 1634; Add 1654 1654 1279; Sub 1417 1417 1654;
  Add 1621 1621 1417; Mul 1417 526 1621; Mul 1654 830 1285; Add 1417 1417 1654; Sub 1132 1132 1417;
  Add 1163 1163 1132; Mul 1132 411 1609; Mul 1276 716 1276; Add 1132 1132 1276; Add 1568 1568 1639;
  Sub 1132 1132 1568; Mul 1568 795 1354; Mul 1471 714 1471; Add 1568 1568 1471; Sub 1132 1132 1568;
  Mul 1568 416 1171; Mul 1398 215 1398; Add 1568 1568 1398; Sub 1150 1150 1568].
Definition casadi_f0_600 : list instruction := [
  Add 1132 1132 1150; Mul 1132 216 1132; Mul 1150 828 1217; Sub 1132 1132 1150; Mul 1150 302 1609;
  Mul 1287 716 1287; Add 1150 1150 1287; Mul 1287 448 1653; Mul 1317 718 1317; Add 1287 1287 1317;
  Sub 1150 1150 1287; Add 1018 1018 1451; Sub 1150 1150 1018; Mul 1566 216 1566; Mul 1018 414 1217;
  Sub 1566 1566 1018; Add 1195 1195 1384; Sub 1566 1566 1195; Add 1150 1150 1566; Mul 1150 215 1150;
  Mul 1566 832 1171; Add 1150 1150 1566; Sub 1566 1132 1150; Mul 1547 216 1547; Mul 1195 797 1217;
  Sub 1547 1547 1195; Add 1122 1122 1533; Sub 1547 1547 1122; Mul 1122 540 1547; Mul 1533 835 1495;
  Sub 1122 1122 1533; Mul 1533 415 1171; Mul 1312 215 1312; Add 1533 1533 1312; Sub 1431 1431 1533;
  Mul 1533 544 1431; Mul 1312 837 1683; Add 1533 1533 1312; Add 1122 1122 1533; Sub 1566 1566 1122;
  Add 1163 1163 1566; Mul 1163 1 1163; Mul 1566 632 1483; Add 1163 1163 1566; Add 1356 1356 1163;
  Mul 1210 678 1210; Mul 1163 684 1689; Add 1210 1210 1163; Mul 1634 673 1634; Mul 1163 827 1375;
  Add 1634 1634 1163; Mul 1670 799 1670; Mul 1163 660 1237; Add 1670 1670 1163; Add 1634 1634 1670;
  Add 1210 1210 1634; Mul 1621 602 1621; Mul 1634 830 1367; Add 1621 1621 1634; Mul 1172 670 1172;
  Mul 1634 829 1403; Add 1172 1172 1634; Mul 1349 671 1349; Mul 1634 656 1141; Add 1349 1349 1634;
  Sub 1172 1172 1349; Add 1621 1621 1172; Add 1210 1210 1621; Mul 1547 674 1547; Mul 1621 835 1476;
  Sub 1547 1547 1621; Mul 1431 680 1431; Mul 1621 837 1564; Add 1431 1431 1621; Mul 1607 216 1607;
  Mul 1621 403 1217; Sub 1607 1607 1621; Mul 1621 293 1171; Mul 1233 215 1233; Add 1621 1621 1233;
  Sub 1607 1607 1621; Mul 1607 676 1607; Mul 1621 839 1662; Add 1607 1607 1621; Sub 1431 1431 1607;
  Add 1547 1547 1431; Sub 1150 1150 1132; Add 1547 1547 1150; Add 1210 1210 1547; Mul 1210 2 1210;
  Mul 1547 834 1570; Add 1210 1210 1547; Add 1356 1356 1210; Mul 1210 647 1609; Mul 1205 716 1205;
  Add 1210 1210 1205; Mul 1205 695 1653; Mul 1255 718 1255; Add 1205 1205 1255; Sub 1210 1210 1205;
  Mul 1205 697 1354; Mul 1655 714 1655; Add 1205 1205 1655; Sub 1210 1210 1205; Add 1210 1210 1167;
  Mul 1210 3 1210; Mul 1167 836 1253; Add 1210 1210 1167; Add 1356 1356 1210; Mul 1210 802 1609;
  Mul 1167 716 1664; Add 1210 1210 1167; Mul 1167 813 1653; Mul 1205 718 1447; Add 1167 1167 1205;
  Sub 1210 1210 1167; Mul 1167 811 1354; Mul 1205 714 1283; Add 1167 1167 1205; Sub 1210 1210 1167;
  Add 1210 1210 1337; Mul 1210 4 1210; Mul 1337 702 1355; Add 1210 1210 1337; Add 1356 1356 1210;
  Mul 1210 788 1609; Mul 1337 716 1280; Add 1210 1210 1337; Mul 1337 822 1653; Mul 1167 718 1479;
  Add 1337 1337 1167; Sub 1210 1210 1337; Mul 1337 820 1354; Mul 1167 714 1140; Add 1337 1337 1167;
  Sub 1210 1210 1337; Add 1210 1210 1333; Mul 1210 5 1210; Mul 1333 810 1514; Add 1210 1210 1333;
  Add 1356 1356 1210; Add 1356 1356 1307; Mul 1307 769 1356; Sub 1399 1399 1307; Add 1636 1636 1399;
  Div 1399 1508 92; Mul 1307 1637 1591; Sub 1399 1399 1307; Mul 1307 815 1399].
Definition casadi_f0_601 : list instruction := [
  Mul 1210 640 1677; Mul 1686 725 1686; Add 1210 1210 1686; Mul 1686 662 1546; Mul 1226 731 1226;
  Add 1686 1686 1226; Add 1196 1196 1193; Add 1686 1686 1196; Add 1210 1210 1686; Mul 1686 580 1644;
  Mul 1646 310 1646; Add 1686 1686 1646; Mul 1646 59 1320; Mul 1502 327 1502; Add 1646 1646 1502;
  Add 1684 1684 1105; Add 1646 1646 1684; Add 1686 1686 1646; Sub 1210 1210 1686; Mul 1210 0 1210;
  Mul 1686 819 1245; Add 1210 1210 1686; Mul 1686 327 1143; Mul 1646 515 1320; Add 1686 1686 1646;
  Mul 1646 318 1571; Mul 1684 489 1034; Add 1646 1646 1684; Sub 1686 1686 1646; Sub 1686 1677 1686;
  Mul 1686 723 1686; Mul 1646 545 1686; Mul 1684 831 1165; Add 1646 1646 1684; Mul 1684 310 1571;
  Mul 1105 489 1644; Add 1684 1684 1105; Mul 1105 327 1455; Mul 1502 486 1320; Add 1105 1105 1502;
  Sub 1684 1684 1105; Sub 1684 1432 1684; Mul 1684 723 1684; Mul 1105 504 1684; Mul 1502 840 1209;
  Add 1105 1105 1502; Mul 1502 318 1455; Mul 1196 486 1034; Add 1502 1502 1196; Mul 1196 310 1143;
  Mul 1193 515 1644; Add 1196 1196 1193; Sub 1502 1502 1196; Sub 1502 1546 1502; Mul 1502 723 1502;
  Mul 1196 541 1502; Mul 1193 842 1383; Add 1196 1196 1193; Sub 1105 1105 1196; Add 1646 1646 1105;
  Mul 1105 842 1455; Mul 1196 486 1502; Add 1105 1105 1196; Mul 1196 831 1571; Mul 1193 489 1686;
  Add 1196 1196 1193; Sub 1105 1105 1196; Mul 1196 310 1697; Mul 1193 510 1644; Add 1196 1196 1193;
  Mul 1193 327 1389; Mul 1226 528 1320; Add 1193 1193 1226; Add 1196 1196 1193; Mul 1164 318 1164;
  Mul 1193 479 1034; Add 1164 1164 1193; Add 1196 1196 1164; Sub 1105 1105 1196; Mul 1196 508 1105;
  Mul 1164 841 1248; Add 1196 1196 1164; Mul 1164 831 1143; Mul 1193 515 1686; Add 1164 1164 1193;
  Mul 1455 840 1455; Mul 1193 486 1684; Add 1455 1455 1193; Sub 1164 1164 1455; Mul 1455 310 1097;
  Mul 1193 606 1644; Add 1455 1455 1193; Mul 1529 327 1529; Mul 1193 786 1320; Add 1529 1529 1193;
  Add 1455 1455 1529; Mul 1389 318 1389; Mul 1529 528 1034; Add 1389 1389 1529; Add 1455 1455 1389;
  Sub 1164 1164 1455; Mul 1455 536 1164; Mul 1389 844 1589; Add 1455 1455 1389; Sub 1196 1196 1455;
  Mul 1571 840 1571; Mul 1455 489 1684; Add 1571 1571 1455; Mul 1143 842 1143; Mul 1455 515 1502;
  Add 1143 1143 1455; Sub 1571 1571 1143; Mul 1667 310 1667; Mul 1143 705 1644; Add 1667 1667 1143;
  Mul 1097 327 1097; Mul 1143 606 1320; Add 1097 1097 1143; Add 1667 1667 1097; Mul 1697 318 1697;
  Mul 1097 510 1034; Add 1697 1697 1097; Add 1667 1667 1697; Sub 1571 1571 1667; Mul 1667 526 1571;
  Mul 1697 845 1285; Add 1667 1667 1697; Sub 1196 1196 1667; Add 1646 1646 1196; Add 1213 1213 1449;
  Mul 1449 800 1320; Mul 1170 327 1170; Add 1449 1449 1170; Mul 1170 643 1034; Mul 1166 318 1166;
  Add 1170 1170 1166; Add 1449 1449 1170; Add 1213 1213 1449; Mul 1449 540 1213; Mul 1170 843 1495;
  Sub 1449 1449 1170; Mul 1170 465 1644; Mul 1183 310 1183; Add 1170 1170 1183; Add 1115 1115 1235;
  Mul 1235 665 1034; Mul 1597 318 1597; Add 1235 1235 1597; Add 1115 1115 1235].
Definition casadi_f0_602 : list instruction := [
  Add 1170 1170 1115; Mul 1115 544 1170; Mul 1235 847 1683; Add 1115 1115 1235; Add 1449 1449 1115;
  Mul 1115 798 1677; Mul 1340 725 1340; Add 1115 1115 1340; Add 1297 1297 1694; Mul 1694 339 1432;
  Mul 1456 727 1456; Add 1694 1694 1456; Add 1297 1297 1694; Add 1115 1115 1297; Mul 1297 407 1644;
  Mul 1527 310 1527; Add 1297 1297 1527; Add 1649 1649 1510; Mul 1510 595 1034; Mul 1528 318 1528;
  Add 1510 1510 1528; Add 1649 1649 1510; Add 1297 1297 1649; Sub 1115 1115 1297; Mul 1115 216 1115;
  Mul 1297 848 1217; Sub 1115 1115 1297; Add 1416 1416 1478; Mul 1478 464 1546; Mul 1024 731 1024;
  Add 1478 1478 1024; Mul 1024 252 1432; Mul 1303 727 1303; Add 1024 1024 1303; Add 1478 1478 1024;
  Add 1416 1416 1478; Add 1500 1500 1350; Mul 1350 361 1320; Mul 1373 327 1373; Add 1350 1350 1373;
  Mul 1373 620 1034; Mul 1296 318 1296; Add 1373 1373 1296; Add 1350 1350 1373; Add 1500 1500 1350;
  Sub 1416 1416 1500; Mul 1416 215 1416; Mul 1500 850 1171; Add 1416 1416 1500; Sub 1500 1115 1416;
  Add 1449 1449 1500; Add 1646 1646 1449; Mul 1646 1 1646; Mul 1449 838 1483; Add 1646 1646 1449;
  Add 1210 1210 1646; Mul 1646 678 1686; Mul 1449 831 1689; Add 1646 1646 1449; Mul 1449 673 1502;
  Mul 1350 842 1375; Add 1449 1449 1350; Mul 1350 799 1684; Mul 1373 840 1237; Add 1350 1350 1373;
  Add 1449 1449 1350; Add 1646 1646 1449; Mul 1449 602 1571; Mul 1350 845 1367; Add 1449 1449 1350;
  Mul 1350 670 1164; Mul 1373 844 1403; Add 1350 1350 1373; Mul 1373 671 1105; Mul 1296 841 1141;
  Add 1373 1373 1296; Sub 1350 1350 1373; Add 1449 1449 1350; Add 1646 1646 1449; Mul 1449 785 1644;
  Mul 1474 310 1474; Add 1449 1449 1474; Mul 1474 306 1320; Mul 1602 327 1602; Add 1474 1474 1602;
  Add 1673 1673 1325; Add 1474 1474 1673; Add 1449 1449 1474; Mul 1474 676 1449; Mul 1673 853 1662;
  Add 1474 1474 1673; Mul 1673 680 1170; Mul 1325 847 1564; Add 1673 1673 1325; Sub 1474 1474 1673;
  Mul 1673 674 1213; Mul 1325 843 1476; Sub 1673 1673 1325; Sub 1474 1474 1673; Sub 1416 1416 1115;
  Add 1474 1474 1416; Add 1646 1646 1474; Mul 1646 2 1646; Mul 1474 846 1570; Add 1646 1646 1474;
  Add 1210 1210 1646; Mul 1686 717 1686; Mul 1646 831 1240; Add 1686 1686 1646; Mul 1684 787 1684;
  Mul 1646 840 1147; Add 1684 1684 1646; Mul 1502 713 1502; Mul 1646 842 1558; Add 1502 1502 1646;
  Sub 1684 1684 1502; Add 1686 1686 1684; Mul 1105 677 1105; Mul 1684 841 1588; Add 1105 1105 1684;
  Mul 1164 712 1164; Mul 1684 844 1491; Add 1164 1164 1684; Sub 1105 1105 1164; Mul 1571 706 1571;
  Mul 1164 845 1407; Add 1571 1571 1164; Sub 1105 1105 1571; Add 1686 1686 1105; Mul 1213 714 1213;
  Mul 1105 843 1354; Add 1213 1213 1105; Mul 1170 718 1170; Mul 1105 847 1653; Add 1170 1170 1105;
  Mul 1449 716 1449; Mul 1105 853 1609; Add 1449 1449 1105; Sub 1170 1170 1449; Add 1213 1213 1170;
  Add 1213 1213 1500; Add 1686 1686 1213; Mul 1686 3 1686; Mul 1213 854 1253; Add 1686 1686 1213;
  Add 1210 1210 1686; Mul 1686 811 1677; Mul 1283 725 1283; Add 1686 1686 1283].
Definition casadi_f0_603 : list instruction := [
  Mul 1283 813 1546; Mul 1447 731 1447; Add 1283 1283 1447; Mul 1447 802 1432; Mul 1664 727 1664;
  Add 1447 1447 1664; Add 1283 1283 1447; Add 1686 1686 1283; Mul 1283 807 1644; Mul 1421 310 1421;
  Add 1283 1283 1421; Mul 1421 690 1320; Mul 1091 327 1091; Add 1421 1421 1091; Mul 1091 720 1034;
  Mul 1406 318 1406; Add 1091 1091 1406; Add 1421 1421 1091; Add 1283 1283 1421; Sub 1686 1686 1283;
  Mul 1686 4 1686; Mul 1283 851 1355; Add 1686 1686 1283; Add 1210 1210 1686; Mul 1686 820 1677;
  Mul 1283 725 1140; Add 1686 1686 1283; Mul 1283 822 1546; Mul 1421 731 1479; Add 1283 1283 1421;
  Mul 1421 788 1432; Mul 1091 727 1280; Add 1421 1421 1091; Add 1283 1283 1421; Add 1686 1686 1283;
  Mul 1283 817 1644; Mul 1421 310 1518; Add 1283 1283 1421; Mul 1421 814 1320; Mul 1091 327 1501;
  Add 1421 1421 1091; Mul 1091 732 1034; Mul 1406 318 1162; Add 1091 1091 1406; Add 1421 1421 1091;
  Add 1283 1283 1421; Sub 1686 1686 1283; Mul 1686 5 1686; Mul 1283 852 1514; Add 1686 1686 1283;
  Add 1210 1210 1686; Sub 1131 1131 1210; Mul 1210 761 1131; Add 1307 1307 1210; Add 1636 1636 1307;
  Div 1307 1035 92; Mul 1210 1619 1591; Sub 1307 1307 1210; Mul 1210 833 1307; Mul 1686 645 1128;
  Mul 1598 736 1598; Add 1686 1686 1598; Mul 1598 666 1119; Mul 1221 741 1221; Add 1598 1598 1221;
  Add 1573 1573 1393; Add 1598 1598 1573; Add 1686 1686 1598; Mul 1598 593 1651; Mul 1439 358 1439;
  Add 1598 1598 1439; Mul 1439 36 1250; Mul 1396 372 1396; Add 1439 1439 1396; Add 1030 1030 1579;
  Add 1439 1439 1030; Add 1598 1598 1439; Sub 1686 1686 1598; Mul 1598 0 1686; Mul 1245 849 1245;
  Add 1598 1598 1245; Mul 1245 372 1090; Mul 1439 438 1250; Add 1245 1245 1439; Mul 1439 369 1427;
  Mul 1030 434 1194; Add 1439 1439 1030; Sub 1245 1245 1439; Sub 1245 1128 1245; Mul 1245 430 1245;
  Mul 1439 545 1245; Mul 1165 856 1165; Add 1439 1439 1165; Mul 1165 358 1427; Mul 1030 434 1651;
  Add 1165 1165 1030; Mul 1030 372 1617; Mul 1579 445 1250; Add 1030 1030 1579; Sub 1165 1165 1030;
  Sub 1165 1330 1165; Mul 1165 430 1165; Mul 1030 504 1165; Mul 1209 858 1209; Add 1030 1030 1209;
  Mul 1209 369 1617; Mul 1579 445 1194; Add 1209 1209 1579; Mul 1579 358 1090; Mul 1396 438 1651;
  Add 1579 1579 1396; Sub 1209 1209 1579; Sub 1209 1119 1209; Mul 1209 430 1209; Mul 1579 541 1209;
  Mul 1383 860 1383; Add 1579 1579 1383; Sub 1030 1030 1579; Add 1439 1439 1030; Mul 1030 860 1617;
  Mul 1579 445 1209; Add 1030 1030 1579; Mul 1579 856 1427; Mul 1383 434 1245; Add 1579 1579 1383;
  Sub 1030 1030 1579; Mul 1579 358 1086; Mul 1383 443 1651; Add 1579 1579 1383; Mul 1383 372 1200;
  Mul 1396 426 1250; Add 1383 1383 1396; Add 1579 1579 1383; Mul 1611 369 1611; Mul 1383 478 1194;
  Add 1611 1611 1383; Add 1579 1579 1611; Sub 1030 1030 1579; Mul 1579 508 1030; Mul 1248 859 1248;
  Add 1579 1579 1248; Mul 1248 856 1090; Mul 1611 438 1245; Add 1248 1248 1611; Mul 1617 858 1617;
  Mul 1611 445 1165; Add 1617 1617 1611; Sub 1248 1248 1617; Mul 1617 358 1108].
Definition casadi_f0_604 : list instruction := [
  Mul 1611 609 1651; Add 1617 1617 1611; Mul 1130 372 1130; Mul 1611 604 1250; Add 1130 1130 1611;
  Add 1617 1617 1130; Mul 1200 369 1200; Mul 1130 426 1194; Add 1200 1200 1130; Add 1617 1617 1200;
  Sub 1248 1248 1617; Mul 1617 536 1248; Mul 1589 862 1589; Add 1617 1617 1589; Sub 1579 1579 1617;
  Mul 1427 858 1427; Mul 1617 434 1165; Add 1427 1427 1617; Mul 1090 860 1090; Mul 1617 438 1209;
  Add 1090 1090 1617; Sub 1427 1427 1090; Mul 1090 13 1651; Mul 1346 358 1346; Sub 1090 1090 1346;
  Mul 1108 372 1108; Mul 1346 609 1250; Add 1108 1108 1346; Add 1090 1090 1108; Mul 1086 369 1086;
  Mul 1108 443 1194; Add 1086 1086 1108; Add 1090 1090 1086; Sub 1427 1427 1090; Mul 1090 526 1427;
  Mul 1285 863 1285; Add 1090 1090 1285; Sub 1579 1579 1090; Add 1439 1439 1579; Add 1021 1021 1087;
  Mul 1087 803 1250; Mul 1453 372 1453; Add 1087 1087 1453; Mul 1453 648 1194; Mul 1263 369 1263;
  Add 1453 1453 1263; Add 1087 1087 1453; Add 1021 1021 1087; Mul 1087 540 1021; Mul 1495 861 1495;
  Sub 1087 1087 1495; Mul 1495 394 1651; Mul 1352 358 1352; Add 1495 1495 1352; Add 1206 1206 1093;
  Mul 1093 669 1194; Mul 1351 369 1351; Add 1093 1093 1351; Add 1206 1206 1093; Add 1495 1495 1206;
  Mul 1206 544 1495; Mul 1683 865 1683; Add 1206 1206 1683; Add 1087 1087 1206; Mul 1206 801 1128;
  Mul 1278 736 1278; Add 1206 1206 1278; Add 1055 1055 1145; Mul 1145 355 1330; Mul 1616 738 1616;
  Add 1145 1145 1616; Add 1055 1055 1145; Add 1206 1206 1055; Mul 1055 359 1651; Mul 1394 358 1394;
  Add 1055 1055 1394; Add 1506 1506 1633; Mul 1633 608 1194; Mul 1176 369 1176; Add 1633 1633 1176;
  Add 1506 1506 1633; Add 1055 1055 1506; Sub 1206 1206 1055; Mul 1055 216 1206; Mul 1217 866 1217;
  Sub 1055 1055 1217; Add 1353 1353 1019; Mul 1019 457 1119; Mul 1540 741 1540; Add 1019 1019 1540;
  Mul 1540 234 1330; Mul 1139 738 1139; Add 1540 1540 1139; Add 1019 1019 1540; Add 1353 1353 1019;
  Add 1295 1295 1247; Mul 1247 352 1250; Mul 1693 372 1693; Add 1247 1247 1693; Mul 1693 622 1194;
  Mul 1275 369 1275; Add 1693 1693 1275; Add 1247 1247 1693; Add 1295 1295 1247; Sub 1353 1353 1295;
  Mul 1295 215 1353; Mul 1171 868 1171; Add 1295 1295 1171; Sub 1171 1055 1295; Add 1087 1087 1171;
  Add 1439 1439 1087; Mul 1439 1 1439; Mul 1483 857 1483; Add 1439 1439 1483; Add 1598 1598 1439;
  Mul 1439 678 1245; Mul 1689 856 1689; Add 1439 1439 1689; Mul 1689 673 1209; Mul 1375 860 1375;
  Add 1689 1689 1375; Mul 1375 799 1165; Mul 1237 858 1237; Add 1375 1375 1237; Add 1689 1689 1375;
  Add 1439 1439 1689; Mul 1689 602 1427; Mul 1367 863 1367; Add 1689 1689 1367; Mul 1367 670 1248;
  Mul 1403 862 1403; Add 1367 1367 1403; Mul 1403 671 1030; Mul 1141 859 1141; Add 1403 1403 1141;
  Sub 1367 1367 1403; Add 1689 1689 1367; Add 1439 1439 1689; Mul 1689 245 1651; Mul 1450 358 1450;
  Add 1689 1689 1450; Mul 1450 356 1250; Mul 1316 372 1316; Add 1450 1450 1316; Add 1053 1053 1199;
  Add 1450 1450 1053; Add 1689 1689 1450; Mul 1450 676 1689; Mul 1662 871 1662].
Definition casadi_f0_605 : list instruction := [
  Add 1450 1450 1662; Mul 1662 680 1495; Mul 1564 865 1564; Add 1662 1662 1564; Sub 1450 1450 1662;
  Mul 1662 674 1021; Mul 1476 861 1476; Sub 1662 1662 1476; Sub 1450 1450 1662; Sub 1295 1295 1055;
  Add 1450 1450 1295; Add 1439 1439 1450; Mul 1439 2 1439; Mul 1570 864 1570; Add 1439 1439 1570;
  Add 1598 1598 1439; Mul 1439 717 1245; Mul 1240 856 1240; Add 1439 1439 1240; Mul 1240 787 1165;
  Mul 1147 858 1147; Add 1240 1240 1147; Mul 1147 713 1209; Mul 1558 860 1558; Add 1147 1147 1558;
  Sub 1240 1240 1147; Add 1439 1439 1240; Mul 1240 677 1030; Mul 1588 859 1588; Add 1240 1240 1588;
  Mul 1588 712 1248; Mul 1491 862 1491; Add 1588 1588 1491; Sub 1240 1240 1588; Mul 1588 706 1427;
  Mul 1407 863 1407; Add 1588 1588 1407; Sub 1240 1240 1588; Add 1439 1439 1240; Mul 1240 714 1021;
  Mul 1354 861 1354; Add 1240 1240 1354; Mul 1354 718 1495; Mul 1653 865 1653; Add 1354 1354 1653;
  Mul 1653 716 1689; Mul 1609 871 1609; Add 1653 1653 1609; Sub 1354 1354 1653; Add 1240 1240 1354;
  Add 1240 1240 1171; Add 1439 1439 1240; Mul 1439 3 1439; Mul 1253 872 1253; Add 1439 1439 1253;
  Add 1598 1598 1439; Mul 1245 729 1245; Mul 1680 856 1680; Add 1245 1245 1680; Mul 1209 724 1209;
  Mul 1036 860 1036; Add 1209 1209 1036; Mul 1165 688 1165; Mul 1345 858 1345; Add 1165 1165 1345;
  Add 1209 1209 1165; Add 1245 1245 1209; Mul 1427 715 1427; Mul 1244 863 1244; Add 1427 1427 1244;
  Mul 1248 721 1248; Mul 1120 862 1120; Add 1248 1248 1120; Mul 1030 722 1030; Mul 1124 859 1124;
  Add 1030 1030 1124; Add 1248 1248 1030; Add 1427 1427 1248; Add 1245 1245 1427; Mul 1021 725 1021;
  Mul 1677 861 1677; Add 1021 1021 1677; Mul 1495 731 1495; Mul 1546 865 1546; Add 1495 1495 1546;
  Mul 1689 727 1689; Mul 1432 871 1432; Add 1689 1689 1432; Add 1495 1495 1689; Add 1021 1021 1495;
  Mul 1353 310 1353; Mul 1644 868 1644; Add 1353 1353 1644; Mul 1206 327 1206; Mul 1320 866 1320;
  Add 1206 1206 1320; Mul 1686 318 1686; Mul 1034 849 1034; Add 1686 1686 1034; Add 1206 1206 1686;
  Add 1353 1353 1206; Add 1021 1021 1353; Sub 1245 1245 1021; Mul 1245 4 1245; Mul 1355 869 1355;
  Add 1245 1245 1355; Add 1598 1598 1245; Mul 1128 820 1128; Mul 1140 736 1140; Add 1128 1128 1140;
  Mul 1119 822 1119; Mul 1479 741 1479; Add 1119 1119 1479; Mul 1330 788 1330; Mul 1280 738 1280;
  Add 1330 1330 1280; Add 1119 1119 1330; Add 1128 1128 1119; Mul 1651 817 1651; Mul 1518 358 1518;
  Add 1651 1651 1518; Mul 1250 814 1250; Mul 1501 372 1501; Add 1250 1250 1501; Mul 1194 732 1194;
  Mul 1162 369 1162; Add 1194 1194 1162; Add 1250 1250 1194; Add 1651 1651 1250; Sub 1128 1128 1651;
  Mul 1128 5 1128; Mul 1514 870 1514; Add 1128 1128 1514; Add 1598 1598 1128; Sub 1532 1532 1598;
  Mul 1598 754 1532; Add 1210 1210 1598; Add 1636 1636 1210; Mul 1210 210 1035; Mul 1598 200 1291;
  Add 1210 1210 1598; Mul 1385 19 1385; Mul 1598 196 1408; Sub 1385 1385 1598; Mul 1598 189 1201;
  Mul 1612 35 1612; Sub 1598 1598 1612; Sub 1385 1385 1598; Mul 1492 55 1492].
Definition casadi_f0_606 : list instruction := [
  Mul 1435 62 1435; Add 1492 1492 1435; Add 1385 1385 1492; Mul 1026 86 1026; Mul 1052 91 1052;
  Add 1026 1026 1052; Add 1026 1385 1026; Mul 1298 102 1298; Sub 1298 1026 1298; Mul 1052 777 1298;
  Mul 1492 209 1144; Add 1052 1052 1492; Add 1210 1210 1052; Mul 1052 778 1026; Mul 1492 867 1463;
  Add 1052 1052 1492; Add 1210 1210 1052; Mul 1052 769 1385; Mul 1492 855 1443; Add 1052 1052 1492;
  Add 1210 1210 1052; Mul 1052 761 1422; Mul 1492 201 1399; Add 1052 1052 1492; Sub 1210 1210 1052;
  Mul 1052 873 1307; Add 1210 1210 1052; Mul 1052 1006 1210; Mul 1492 210 1210; Mul 1435 756 1291;
  Add 1492 1492 1435; Sub 1035 1035 1492; Mul 1492 881 1035; Mul 1435 210 1635; Mul 1598 143 1291;
  Add 1435 1435 1598; Sub 1269 1269 1592; Sub 1202 1202 1485; Mul 1202 37 1202; Add 1269 1269 1202;
  Sub 1361 1361 1430; Mul 1361 80 1361; Add 1361 1269 1361; Sub 1561 1561 1309; Mul 1561 100 1561;
  Add 1561 1361 1561; Mul 1290 1064 1290; Mul 1593 1061 1593; Add 1290 1290 1593; Mul 1290 141 1290;
  Add 1561 1561 1290; Mul 1290 777 1561; Mul 1593 876 1144; Add 1290 1290 1593; Add 1435 1435 1290;
  Mul 1669 151 1669; Mul 1631 103 1631; Add 1669 1669 1631; Mul 1020 148 1020; Mul 1083 105 1083;
  Add 1020 1020 1083; Sub 1669 1669 1020; Sub 1669 1669 1361; Mul 1266 102 1266; Sub 1266 1669 1266;
  Mul 1361 778 1266; Mul 1020 153 1463; Add 1361 1361 1020; Sub 1435 1435 1361; Mul 1578 1057 1578;
  Mul 1159 1065 1159; Sub 1578 1578 1159; Mul 1578 156 1578; Add 1269 1269 1578; Mul 1259 86 1259;
  Mul 1600 91 1600; Sub 1259 1259 1600; Add 1259 1269 1259; Mul 1531 102 1531; Sub 1531 1259 1531;
  Mul 1600 769 1531; Mul 1578 171 1443; Add 1600 1600 1578; Add 1435 1435 1600; Mul 1201 180 1201;
  Mul 1092 35 1092; Add 1201 1201 1092; Mul 1395 19 1395; Mul 1408 182 1408; Sub 1395 1395 1408;
  Sub 1201 1201 1395; Mul 1490 55 1490; Add 1201 1201 1490; Mul 1661 86 1661; Mul 1513 91 1513;
  Add 1661 1661 1513; Add 1661 1201 1661; Mul 1625 102 1625; Sub 1625 1661 1625; Mul 1513 761 1625;
  Mul 1490 188 1399; Add 1513 1513 1490; Add 1435 1435 1513; Mul 1513 754 1298; Mul 1490 209 1307;
  Add 1513 1513 1490; Add 1435 1435 1513; Mul 1513 210 1435; Mul 1490 875 1291; Add 1513 1513 1490;
  Sub 1635 1635 1513; Div 1513 1635 65; Mul 1635 89 1635; Mul 1490 777 1435; Mul 1395 875 1144;
  Add 1490 1490 1395; Sub 1561 1561 1490; Mul 1490 58 1561; Add 1635 1635 1490; Mul 1490 778 1435;
  Mul 1395 875 1463; Add 1490 1490 1395; Add 1490 1266 1490; Mul 1395 45 1490; Add 1635 1635 1395;
  Mul 1395 769 1435; Mul 1408 875 1443; Add 1395 1395 1408; Sub 1395 1531 1395; Mul 1408 22 1395;
  Add 1635 1635 1408; Mul 1408 761 1435; Mul 1092 875 1399; Add 1408 1408 1092; Sub 1408 1625 1408;
  Mul 1092 879 1408; Add 1635 1635 1092; Mul 1092 754 1435; Mul 1600 875 1307; Add 1092 1092 1600;
  Sub 1092 1298 1092; Mul 1600 880 1092; Add 1635 1635 1600; Div 1635 1635 1045; Mul 1600 1078 1635;
  Sub 1513 1513 1600; Mul 1600 874 1513; Add 1492 1492 1600; Mul 1600 777 1210].
Definition casadi_f0_607 : list instruction := [
  Mul 1578 756 1144; Add 1600 1600 1578; Sub 1298 1298 1600; Mul 1600 884 1298; Div 1561 1561 65;
  Mul 1578 1029 1635; Sub 1561 1561 1578; Mul 1578 883 1561; Add 1600 1600 1578; Add 1492 1492 1600;
  Mul 1600 778 1210; Mul 1578 756 1463; Add 1600 1600 1578; Sub 1600 1600 1026; Mul 1578 886 1600;
  Div 1490 1490 65; Mul 1159 1063 1635; Sub 1490 1490 1159; Mul 1159 885 1490; Add 1578 1578 1159;
  Add 1492 1492 1578; Mul 1578 769 1210; Mul 1159 756 1443; Add 1578 1578 1159; Sub 1578 1385 1578;
  Mul 1159 888 1578; Div 1395 1395 65; Mul 1361 1040 1635; Sub 1395 1395 1361; Mul 1361 887 1395;
  Add 1159 1159 1361; Add 1492 1492 1159; Mul 1159 761 1210; Mul 1361 756 1399; Add 1159 1159 1361;
  Add 1159 1422 1159; Mul 1361 890 1159; Div 1408 1408 65; Mul 1020 1027 1635; Sub 1408 1408 1020;
  Mul 1020 889 1408; Add 1361 1361 1020; Sub 1492 1492 1361; Div 1092 1092 65; Mul 1361 1046 1635;
  Sub 1092 1092 1361; Mul 1361 891 1092; Mul 1210 754 1210; Mul 1020 756 1307; Add 1210 1210 1020;
  Mul 1020 892 1210; Sub 1361 1361 1020; Add 1492 1492 1361; Mul 1361 881 1492; Mul 1020 882 1513;
  Add 1361 1361 1020; Sub 1035 1035 1361; Mul 1361 884 1492; Mul 1020 882 1561; Add 1361 1361 1020;
  Sub 1298 1298 1361; Mul 1361 910 1298; Mul 1020 777 1266; Mul 1083 153 1144; Add 1020 1020 1083;
  Mul 1083 210 1322; Mul 1631 154 1291; Add 1083 1083 1631; Sub 1020 1020 1083; Mul 1083 778 1669;
  Mul 1631 106 1463; Add 1083 1083 1631; Add 1020 1020 1083; Mul 1083 769 1259; Mul 1631 877 1443;
  Add 1083 1083 1631; Sub 1020 1020 1083; Mul 1083 761 1661; Mul 1631 94 1399; Add 1083 1083 1631;
  Sub 1020 1020 1083; Mul 1083 754 1026; Mul 1631 867 1307; Add 1083 1083 1631; Sub 1020 1020 1083;
  Mul 1083 777 1020; Mul 1631 895 1144; Add 1083 1083 1631; Sub 1266 1266 1083; Mul 1083 884 1266;
  Mul 1631 896 1561; Add 1083 1083 1631; Mul 1631 210 1020; Mul 1290 895 1291; Add 1631 1631 1290;
  Add 1322 1322 1631; Mul 1631 881 1322; Mul 1290 898 1513; Add 1631 1631 1290; Sub 1083 1083 1631;
  Mul 1631 778 1020; Mul 1290 895 1463; Add 1631 1631 1290; Sub 1631 1631 1669; Mul 1669 886 1631;
  Mul 1290 899 1490; Add 1669 1669 1290; Add 1083 1083 1669; Mul 1669 769 1020; Mul 1290 895 1443;
  Add 1669 1669 1290; Add 1669 1259 1669; Mul 1290 888 1669; Mul 1593 900 1395; Add 1290 1290 1593;
  Sub 1083 1083 1290; Mul 1290 761 1020; Mul 1593 895 1399; Add 1290 1290 1593; Add 1290 1661 1290;
  Mul 1593 890 1290; Mul 1309 901 1408; Add 1593 1593 1309; Sub 1083 1083 1593; Mul 1593 754 1020;
  Mul 1309 895 1307; Add 1593 1593 1309; Add 1026 1026 1593; Mul 1593 892 1026; Mul 1309 902 1092;
  Add 1593 1593 1309; Sub 1083 1083 1593; Mul 1593 884 1083; Mul 1309 897 1561; Add 1593 1593 1309;
  Sub 1266 1266 1593; Div 1593 1266 905; Mul 1309 881 1083; Mul 1430 897 1513; Add 1309 1309 1430;
  Add 1322 1322 1309; Mul 1309 904 1322; Mul 1266 903 1266; Add 1309 1309 1266; Mul 1266 886 1083;
  Mul 1430 897 1490; Add 1266 1266 1430; Sub 1631 1631 1266; Mul 1266 906 1631].
Definition casadi_f0_608 : list instruction := [
  Add 1309 1309 1266; Mul 1266 888 1083; Mul 1430 897 1395; Add 1266 1266 1430; Add 1669 1669 1266;
  Mul 1266 907 1669; Add 1309 1309 1266; Mul 1266 890 1083; Mul 1430 897 1408; Add 1266 1266 1430;
  Add 1290 1290 1266; Mul 1266 908 1290; Add 1309 1309 1266; Mul 1266 892 1083; Mul 1430 897 1092;
  Add 1266 1266 1430; Add 1026 1026 1266; Mul 1266 909 1026; Add 1309 1309 1266; Div 1309 1309 1067;
  Mul 1266 1214 1309; Sub 1593 1593 1266; Mul 1266 894 1593; Add 1361 1361 1266; Mul 1266 912 1035;
  Div 1322 1322 905; Mul 1430 1614 1309; Sub 1322 1322 1430; Mul 1430 893 1322; Add 1266 1266 1430;
  Sub 1361 1361 1266; Mul 1266 886 1492; Mul 1430 882 1490; Add 1266 1266 1430; Sub 1600 1600 1266;
  Mul 1266 914 1600; Div 1631 1631 905; Mul 1430 1273 1309; Sub 1631 1631 1430; Mul 1430 913 1631;
  Add 1266 1266 1430; Add 1361 1361 1266; Mul 1266 888 1492; Mul 1430 882 1395; Add 1266 1266 1430;
  Sub 1578 1578 1266; Mul 1266 916 1578; Div 1669 1669 905; Mul 1430 1260 1309; Sub 1669 1669 1430;
  Mul 1430 915 1669; Add 1266 1266 1430; Sub 1361 1361 1266; Mul 1266 890 1492; Mul 1430 882 1408;
  Add 1266 1266 1430; Add 1159 1159 1266; Mul 1266 918 1159; Div 1290 1290 905; Mul 1430 1249 1309;
  Sub 1290 1290 1430; Mul 1430 917 1290; Add 1266 1266 1430; Add 1361 1361 1266; Div 1026 1026 905;
  Mul 1266 1569 1309; Sub 1026 1026 1266; Mul 1266 919 1026; Mul 1430 892 1492; Mul 1202 882 1092;
  Add 1430 1430 1202; Add 1210 1210 1430; Mul 1430 920 1210; Sub 1266 1266 1430; Sub 1361 1361 1266;
  Mul 1266 912 1361; Mul 1430 911 1322; Add 1266 1266 1430; Add 1035 1035 1266; Mul 1266 944 1035;
  Mul 1430 210 1028; Mul 1202 168 1291; Add 1430 1430 1202; Mul 1202 777 1531; Mul 1485 171 1144;
  Add 1202 1202 1485; Add 1430 1430 1202; Mul 1202 778 1259; Mul 1485 877 1463; Add 1202 1202 1485;
  Add 1430 1430 1202; Mul 1202 769 1269; Mul 1485 878 1443; Add 1202 1202 1485; Add 1430 1430 1202;
  Mul 1202 761 1201; Mul 1485 98 1399; Add 1202 1202 1485; Add 1430 1430 1202; Mul 1202 754 1385;
  Mul 1485 855 1307; Add 1202 1202 1485; Add 1430 1430 1202; Mul 1202 210 1430; Mul 1485 922 1291;
  Add 1202 1202 1485; Sub 1028 1028 1202; Mul 1202 881 1028; Mul 1485 923 1513; Add 1202 1202 1485;
  Mul 1485 777 1430; Mul 1592 922 1144; Add 1485 1485 1592; Sub 1531 1531 1485; Mul 1485 884 1531;
  Mul 1592 925 1561; Add 1485 1485 1592; Add 1202 1202 1485; Mul 1485 778 1430; Mul 1592 922 1463;
  Add 1485 1485 1592; Sub 1485 1485 1259; Mul 1259 886 1485; Mul 1592 926 1490; Add 1259 1259 1592;
  Add 1202 1202 1259; Mul 1259 769 1430; Mul 1592 922 1443; Add 1259 1259 1592; Sub 1269 1269 1259;
  Mul 1259 888 1269; Mul 1592 927 1395; Add 1259 1259 1592; Add 1202 1202 1259; Mul 1259 761 1430;
  Mul 1592 922 1399; Add 1259 1259 1592; Sub 1259 1201 1259; Mul 1592 890 1259; Mul 1598 928 1408;
  Add 1592 1592 1598; Add 1202 1202 1592; Mul 1592 754 1430; Mul 1598 922 1307; Add 1592 1592 1598;
  Sub 1385 1385 1592; Mul 1592 892 1385; Mul 1598 929 1092; Add 1592 1592 1598].
Definition casadi_f0_609 : list instruction := [
  Add 1202 1202 1592; Mul 1592 881 1202; Mul 1598 924 1513; Add 1592 1592 1598; Sub 1028 1028 1592;
  Mul 1592 884 1202; Mul 1598 924 1561; Add 1592 1592 1598; Sub 1531 1531 1592; Mul 1592 910 1531;
  Mul 1598 931 1593; Add 1592 1592 1598; Mul 1598 912 1028; Mul 1612 930 1322; Add 1598 1598 1612;
  Sub 1592 1592 1598; Mul 1598 886 1202; Mul 1612 924 1490; Add 1598 1598 1612; Sub 1485 1485 1598;
  Mul 1598 914 1485; Mul 1612 933 1631; Add 1598 1598 1612; Add 1592 1592 1598; Mul 1598 888 1202;
  Mul 1612 924 1395; Add 1598 1598 1612; Sub 1269 1269 1598; Mul 1598 916 1269; Mul 1612 934 1669;
  Add 1598 1598 1612; Sub 1592 1592 1598; Mul 1598 890 1202; Mul 1612 924 1408; Add 1598 1598 1612;
  Sub 1259 1259 1598; Mul 1598 918 1259; Mul 1612 935 1290; Add 1598 1598 1612; Sub 1592 1592 1598;
  Mul 1598 892 1202; Mul 1612 924 1092; Add 1598 1598 1612; Sub 1385 1385 1598; Mul 1598 920 1385;
  Mul 1612 936 1026; Add 1598 1598 1612; Sub 1592 1592 1598; Mul 1598 912 1592; Mul 1612 932 1322;
  Add 1598 1598 1612; Add 1028 1028 1598; Div 1598 1028 938; Mul 1028 937 1028; Mul 1612 910 1592;
  Mul 1128 932 1593; Add 1612 1612 1128; Sub 1531 1531 1612; Mul 1612 939 1531; Add 1028 1028 1612;
  Mul 1612 914 1592; Mul 1128 932 1631; Add 1612 1612 1128; Sub 1485 1485 1612; Mul 1612 940 1485;
  Add 1028 1028 1612; Mul 1612 916 1592; Mul 1128 932 1669; Add 1612 1612 1128; Add 1269 1269 1612;
  Mul 1612 941 1269; Add 1028 1028 1612; Mul 1612 918 1592; Mul 1128 932 1290; Add 1612 1612 1128;
  Add 1259 1259 1612; Mul 1612 942 1259; Add 1028 1028 1612; Mul 1612 920 1592; Mul 1128 932 1026;
  Add 1612 1612 1128; Add 1385 1385 1612; Mul 1612 943 1385; Add 1028 1028 1612; Div 1028 1028 1615;
  Mul 1612 1446 1028; Sub 1598 1598 1612; Mul 1612 921 1598; Add 1266 1266 1612; Mul 1612 910 1361;
  Mul 1128 911 1593; Add 1612 1612 1128; Sub 1298 1298 1612; Mul 1612 947 1298; Div 1531 1531 938;
  Mul 1128 1184 1028; Sub 1531 1531 1128; Mul 1128 946 1531; Add 1612 1612 1128; Add 1266 1266 1612;
  Mul 1612 914 1361; Mul 1128 911 1631; Add 1612 1612 1128; Sub 1600 1600 1612; Mul 1612 949 1600;
  Div 1485 1485 938; Mul 1128 1160 1028; Sub 1485 1485 1128; Mul 1128 948 1485; Add 1612 1612 1128;
  Add 1266 1266 1612; Mul 1612 916 1361; Mul 1128 911 1669; Add 1612 1612 1128; Add 1578 1578 1612;
  Mul 1612 951 1578; Div 1269 1269 938; Mul 1128 1328 1028; Sub 1269 1269 1128; Mul 1128 950 1269;
  Add 1612 1612 1128; Add 1266 1266 1612; Mul 1612 918 1361; Mul 1128 911 1290; Add 1612 1612 1128;
  Sub 1612 1612 1159; Mul 1159 953 1612; Div 1259 1259 938; Mul 1128 1155 1028; Sub 1259 1259 1128;
  Mul 1128 952 1259; Add 1159 1159 1128; Add 1266 1266 1159; Mul 1159 920 1361; Mul 1128 911 1026;
  Add 1159 1159 1128; Sub 1159 1159 1210; Mul 1210 955 1159; Div 1385 1385 938; Mul 1128 1220 1028;
  Sub 1385 1385 1128; Mul 1128 954 1385; Add 1210 1210 1128; Add 1266 1266 1210; Mul 1210 944 1266;
  Mul 1128 945 1598; Add 1210 1210 1128; Sub 1035 1035 1210; Mul 1210 986 1035].
Definition casadi_f0_610 : list instruction := [
  Mul 1128 210 1508; Mul 1514 175 1291; Add 1128 1128 1514; Mul 1514 777 1625; Mul 1651 188 1144;
  Add 1514 1514 1651; Add 1128 1128 1514; Mul 1514 778 1661; Mul 1651 94 1463; Add 1514 1514 1651;
  Add 1128 1128 1514; Mul 1514 769 1201; Mul 1651 98 1443; Add 1514 1514 1651; Add 1128 1128 1514;
  Mul 1514 761 1136; Mul 1651 172 1399; Add 1514 1514 1651; Sub 1128 1128 1514; Mul 1514 754 1422;
  Mul 1651 201 1307; Add 1514 1514 1651; Sub 1128 1128 1514; Mul 1514 210 1128; Mul 1291 957 1291;
  Add 1514 1514 1291; Sub 1508 1508 1514; Mul 1514 881 1508; Mul 1291 958 1513; Add 1514 1514 1291;
  Mul 1291 777 1128; Mul 1144 957 1144; Add 1291 1291 1144; Sub 1625 1625 1291; Mul 1291 884 1625;
  Mul 1144 960 1561; Add 1291 1291 1144; Add 1514 1514 1291; Mul 1291 778 1128; Mul 1463 957 1463;
  Add 1291 1291 1463; Sub 1291 1291 1661; Mul 1661 886 1291; Mul 1463 961 1490; Add 1661 1661 1463;
  Add 1514 1514 1661; Mul 1661 769 1128; Mul 1443 957 1443; Add 1661 1661 1443; Sub 1201 1201 1661;
  Mul 1661 888 1201; Mul 1443 962 1395; Add 1661 1661 1443; Add 1514 1514 1661; Mul 1661 761 1128;
  Mul 1399 957 1399; Add 1661 1661 1399; Add 1136 1136 1661; Mul 1661 890 1136; Mul 1399 963 1408;
  Add 1661 1661 1399; Sub 1514 1514 1661; Mul 1661 754 1128; Mul 1307 957 1307; Add 1661 1661 1307;
  Add 1422 1422 1661; Mul 1661 892 1422; Mul 1307 964 1092; Add 1661 1661 1307; Sub 1514 1514 1661;
  Mul 1661 881 1514; Mul 1307 959 1513; Add 1661 1661 1307; Sub 1508 1508 1661; Mul 1661 884 1514;
  Mul 1307 959 1561; Add 1661 1661 1307; Sub 1625 1625 1661; Mul 1661 910 1625; Mul 1307 966 1593;
  Add 1661 1661 1307; Mul 1307 912 1508; Mul 1399 965 1322; Add 1307 1307 1399; Sub 1661 1661 1307;
  Mul 1307 886 1514; Mul 1399 959 1490; Add 1307 1307 1399; Sub 1291 1291 1307; Mul 1307 914 1291;
  Mul 1399 968 1631; Add 1307 1307 1399; Add 1661 1661 1307; Mul 1307 888 1514; Mul 1399 959 1395;
  Add 1307 1307 1399; Sub 1201 1201 1307; Mul 1307 916 1201; Mul 1399 969 1669; Add 1307 1307 1399;
  Sub 1661 1661 1307; Mul 1307 890 1514; Mul 1399 959 1408; Add 1307 1307 1399; Add 1136 1136 1307;
  Mul 1307 918 1136; Mul 1399 970 1290; Add 1307 1307 1399; Add 1661 1661 1307; Mul 1307 892 1514;
  Mul 1399 959 1092; Add 1307 1307 1399; Add 1422 1422 1307; Mul 1307 920 1422; Mul 1399 971 1026;
  Add 1307 1307 1399; Add 1661 1661 1307; Mul 1307 912 1661; Mul 1399 967 1322; Add 1307 1307 1399;
  Add 1508 1508 1307; Mul 1307 944 1508; Mul 1399 972 1598; Add 1307 1307 1399; Mul 1399 910 1661;
  Mul 1443 967 1593; Add 1399 1399 1443; Sub 1625 1625 1399; Mul 1399 947 1625; Mul 1443 974 1531;
  Add 1399 1399 1443; Add 1307 1307 1399; Mul 1399 914 1661; Mul 1443 967 1631; Add 1399 1399 1443;
  Sub 1291 1291 1399; Mul 1399 949 1291; Mul 1443 975 1485; Add 1399 1399 1443; Add 1307 1307 1399;
  Mul 1399 916 1661; Mul 1443 967 1669; Add 1399 1399 1443; Add 1201 1201 1399; Mul 1399 951 1201;
  Mul 1443 976 1269; Add 1399 1399 1443; Add 1307 1307 1399; Mul 1399 918 1661].
Definition casadi_f0_611 : list instruction := [
  Mul 1443 967 1290; Add 1399 1399 1443; Sub 1399 1399 1136; Mul 1136 953 1399; Mul 1443 977 1259;
  Add 1136 1136 1443; Add 1307 1307 1136; Mul 1136 920 1661; Mul 1443 967 1026; Add 1136 1136 1443;
  Sub 1136 1136 1422; Mul 1422 955 1136; Mul 1443 978 1385; Add 1422 1422 1443; Add 1307 1307 1422;
  Mul 1422 944 1307; Mul 1443 973 1598; Add 1422 1422 1443; Sub 1508 1508 1422; Div 1422 1508 980;
  Mul 1508 979 1508; Mul 1443 947 1307; Mul 1463 973 1531; Add 1443 1443 1463; Sub 1625 1625 1443;
  Mul 1443 981 1625; Add 1508 1508 1443; Mul 1443 949 1307; Mul 1463 973 1485; Add 1443 1443 1463;
  Sub 1291 1291 1443; Mul 1443 982 1291; Add 1508 1508 1443; Mul 1443 951 1307; Mul 1463 973 1269;
  Add 1443 1443 1463; Sub 1201 1201 1443; Mul 1443 983 1201; Add 1508 1508 1443; Mul 1443 953 1307;
  Mul 1463 973 1259; Add 1443 1443 1463; Sub 1399 1399 1443; Mul 1443 984 1399; Add 1508 1508 1443;
  Mul 1443 955 1307; Mul 1463 973 1385; Add 1443 1443 1463; Sub 1136 1136 1443; Mul 1443 985 1136;
  Add 1508 1508 1443; Div 1508 1508 1630; Mul 1443 1629 1508; Sub 1422 1422 1443; Mul 1443 956 1422;
  Add 1210 1210 1443; Mul 1443 947 1266; Mul 1463 945 1531; Add 1443 1443 1463; Sub 1298 1298 1443;
  Mul 1443 989 1298; Div 1625 1625 980; Mul 1463 1262 1508; Sub 1625 1625 1463; Mul 1463 988 1625;
  Add 1443 1443 1463; Add 1210 1210 1443; Mul 1443 949 1266; Mul 1463 945 1485; Add 1443 1443 1463;
  Sub 1600 1600 1443; Mul 1443 991 1600; Div 1291 1291 980; Mul 1463 1306 1508; Sub 1291 1291 1463;
  Mul 1463 990 1291; Add 1443 1443 1463; Add 1210 1210 1443; Mul 1443 951 1266; Mul 1463 945 1269;
  Add 1443 1443 1463; Sub 1578 1578 1443; Mul 1443 993 1578; Div 1201 1201 980; Mul 1463 1626 1508;
  Sub 1201 1201 1463; Mul 1463 992 1201; Add 1443 1443 1463; Add 1210 1210 1443; Mul 1443 953 1266;
  Mul 1463 945 1259; Add 1443 1443 1463; Sub 1612 1612 1443; Mul 1443 995 1612; Div 1399 1399 980;
  Mul 1463 1530 1508; Sub 1399 1399 1463; Mul 1463 994 1399; Add 1443 1443 1463; Add 1210 1210 1443;
  Mul 1443 955 1266; Mul 1463 945 1385; Add 1443 1443 1463; Sub 1159 1159 1443; Mul 1443 997 1159;
  Div 1136 1136 980; Mul 1463 1472 1508; Sub 1136 1136 1463; Mul 1463 996 1136; Add 1443 1443 1463;
  Add 1210 1210 1443; Mul 1443 986 1210; Mul 1463 987 1422; Add 1443 1443 1463; Sub 1035 1035 1443;
  Div 1443 1035 999; Mul 1035 998 1035; Mul 1463 989 1210; Mul 1144 987 1625; Add 1463 1463 1144;
  Sub 1298 1298 1463; Mul 1463 1000 1298; Add 1035 1035 1463; Mul 1463 991 1210; Mul 1144 987 1291;
  Add 1463 1463 1144; Sub 1600 1600 1463; Mul 1463 1001 1600; Add 1035 1035 1463; Mul 1463 993 1210;
  Mul 1144 987 1201; Add 1463 1463 1144; Sub 1578 1578 1463; Mul 1463 1002 1578; Add 1035 1035 1463;
  Mul 1463 995 1210; Mul 1144 987 1399; Add 1463 1463 1144; Sub 1612 1612 1463; Mul 1463 1003 1612;
  Add 1035 1035 1463; Mul 1463 997 1210; Mul 1144 987 1136; Add 1463 1463 1144; Sub 1159 1159 1463;
  Mul 1463 1004 1159; Add 1035 1035 1463; Div 1035 1035 1095; Mul 1463 1596 1035].
Definition casadi_f0_612 : list instruction := [
  Sub 1443 1443 1463; Mul 1443 211 1443; Mul 1463 1005 1288; Sub 1443 1443 1463; Div 1298 1298 999;
  Mul 1463 1331 1035; Sub 1298 1298 1463; Mul 1298 779 1298; Mul 1463 1007 1071; Sub 1298 1298 1463;
  Add 1443 1443 1298; Div 1600 1600 999; Mul 1298 1080 1035; Sub 1600 1600 1298; Mul 1600 767 1600;
  Mul 1298 1008 1222; Add 1600 1600 1298; Add 1443 1443 1600; Div 1578 1578 999; Mul 1600 1056 1035;
  Sub 1578 1578 1600; Mul 1578 775 1578; Mul 1600 1009 1356; Sub 1578 1578 1600; Add 1443 1443 1578;
  Div 1612 1612 999; Mul 1578 1068 1035; Sub 1612 1612 1578; Mul 1612 815 1612; Mul 1578 1010 1131;
  Add 1612 1612 1578; Add 1443 1443 1612; Div 1159 1159 999; Mul 1612 1178 1035; Sub 1159 1159 1612;
  Mul 1159 833 1159; Mul 1612 1011 1532; Add 1159 1159 1612; Add 1443 1443 1159; Div 1443 1443 999;
  Mul 1035 1033 1035; Sub 1443 1443 1035; Mul 1035 756 1443; Add 1052 1052 1035; Sub 1636 1636 1052;
  Mul 1128 1012 1128; Mul 1422 211 1422; Mul 1052 986 1288; Sub 1422 1422 1052; Mul 1625 779 1625;
  Mul 1052 989 1071; Sub 1625 1625 1052; Add 1422 1422 1625; Mul 1291 767 1291; Mul 1625 991 1222;
  Add 1291 1291 1625; Add 1422 1422 1291; Mul 1201 775 1201; Mul 1291 993 1356; Sub 1201 1201 1291;
  Add 1422 1422 1201; Mul 1399 815 1399; Mul 1201 995 1131; Add 1399 1399 1201; Add 1422 1422 1399;
  Mul 1136 833 1136; Mul 1399 997 1532; Add 1136 1136 1399; Add 1422 1422 1136; Mul 1210 1006 1210;
  Mul 1136 987 1443; Add 1210 1210 1136; Sub 1422 1422 1210; Div 1422 1422 980; Mul 1508 1534 1508;
  Sub 1422 1422 1508; Mul 1508 957 1422; Add 1128 1128 1508; Sub 1636 1636 1128; Mul 1430 1013 1430;
  Mul 1598 211 1598; Mul 1128 944 1288; Sub 1598 1598 1128; Mul 1531 779 1531; Mul 1128 947 1071;
  Sub 1531 1531 1128; Add 1598 1598 1531; Mul 1485 767 1485; Mul 1531 949 1222; Add 1485 1485 1531;
  Add 1598 1598 1485; Mul 1269 775 1269; Mul 1485 951 1356; Sub 1269 1269 1485; Add 1598 1598 1269;
  Mul 1259 815 1259; Mul 1269 953 1131; Add 1259 1259 1269; Add 1598 1598 1259; Mul 1385 833 1385;
  Mul 1259 955 1532; Add 1385 1385 1259; Add 1598 1598 1385; Mul 1266 1006 1266; Mul 1385 945 1443;
  Add 1266 1266 1385; Sub 1598 1598 1266; Mul 1307 1012 1307; Mul 1266 973 1422; Add 1307 1307 1266;
  Sub 1598 1598 1307; Div 1598 1598 938; Mul 1028 1397 1028; Sub 1598 1598 1028; Mul 1028 922 1598;
  Add 1430 1430 1028; Sub 1636 1636 1430; Mul 1020 1014 1020; Mul 1593 779 1593; Mul 1430 910 1071;
  Sub 1593 1593 1430; Mul 1322 211 1322; Mul 1430 912 1288; Sub 1322 1322 1430; Sub 1593 1593 1322;
  Mul 1631 767 1631; Mul 1322 914 1222; Add 1631 1631 1322; Add 1593 1593 1631; Mul 1669 775 1669;
  Mul 1631 916 1356; Sub 1669 1669 1631; Sub 1593 1593 1669; Mul 1290 815 1290; Mul 1669 918 1131;
  Add 1290 1290 1669; Sub 1593 1593 1290; Mul 1026 833 1026; Mul 1290 920 1532; Add 1026 1026 1290;
  Sub 1593 1593 1026; Mul 1361 1006 1361; Mul 1026 911 1443; Add 1361 1361 1026; Sub 1593 1593 1361;
  Mul 1661 1012 1661; Mul 1361 967 1422; Add 1661 1661 1361; Sub 1593 1593 1661].
Definition casadi_f0_613 : list instruction := [
  Mul 1592 1013 1592; Mul 1661 932 1598; Add 1592 1592 1661; Sub 1593 1593 1592; Div 1593 1593 905;
  Mul 1309 1553 1309; Sub 1593 1593 1309; Mul 1309 895 1593; Add 1020 1020 1309; Sub 1636 1636 1020;
  Mul 1435 1015 1435; Mul 1513 211 1513; Mul 1288 881 1288; Sub 1513 1513 1288; Mul 1561 779 1561;
  Mul 1071 884 1071; Sub 1561 1561 1071; Add 1513 1513 1561; Mul 1490 767 1490; Mul 1222 886 1222;
  Add 1490 1490 1222; Add 1513 1513 1490; Mul 1395 775 1395; Mul 1356 888 1356; Sub 1395 1395 1356;
  Add 1513 1513 1395; Mul 1408 815 1408; Mul 1131 890 1131; Add 1408 1408 1131; Add 1513 1513 1408;
  Mul 1092 833 1092; Mul 1532 892 1532; Add 1092 1092 1532; Add 1513 1513 1092; Mul 1492 1006 1492;
  Mul 1092 882 1443; Add 1492 1492 1092; Sub 1513 1513 1492; Mul 1514 1012 1514; Mul 1492 959 1422;
  Add 1514 1514 1492; Sub 1513 1513 1514; Mul 1202 1013 1202; Mul 1514 924 1598; Add 1202 1202 1514;
  Sub 1513 1513 1202; Mul 1083 1014 1083; Mul 1202 897 1593; Add 1083 1083 1202; Sub 1513 1513 1083;
  Div 1513 1513 65; Mul 1635 1623 1635; Sub 1513 1513 1635; Mul 1635 875 1513; Add 1435 1435 1635;
  Sub 1636 1636 1435; Div 1636 1636 92; Mul 1591 759 1591; Sub 1636 1636 1591; Out 1 126 1636; Out 1 127 1513;
  Out 1 128 1593; Out 1 129 1598; Out 1 130 1422; Out 1 131 1443; Arg 1443 1 138; Out 1 132 1443;
  Arg 1422 1 139; Out 1 133 1422; Arg 1598 1 140; Out 1 134 1598; Arg 1593 1 141; Out 1 135 1593;
  Arg 1513 1 142; Out 1 136 1513; Arg 1636 1 143; Out 1 137 1636; Arg 1591 1 134; Mul 1435 8 1591;
  Mul 1635 10 1435; Arg 1083 1 137; Mul 1202 16 1083; Mul 1514 21 1202; Mul 1083 15 1083; Mul 1492 18 1083;
  Mul 1092 14 1202; Add 1492 1492 1092; Mul 1092 15 1492; Sub 1514 1514 1092; Mul 1092 18 1202;
  Mul 1532 14 1083; Sub 1092 1092 1532; Mul 1092 16 1092; Mul 1532 17 1083; Sub 1092 1092 1532;
  Sub 1532 1514 1092; Mul 1408 28 1083; Mul 1131 26 1202; Add 1408 1408 1131; Mul 1131 1031 1408;
  Mul 1395 28 1202; Mul 1356 26 1083; Sub 1395 1395 1356; Mul 1356 29 1395; Sub 1490 1131 1356;
  Mul 1490 20 1490; Add 1532 1532 1490; Mul 1356 20 1356; Add 1514 1514 1356; Add 1532 1532 1514;
  Mul 1131 20 1131; Add 1092 1092 1131; Add 1092 1092 1514; Add 1131 1532 1092; Mul 1092 19 1092;
  Arg 1356 1 136; Mul 1490 35 1356; Mul 1222 30 1490; Sub 1092 1092 1222; Mul 1356 19 1356; Mul 1222 41 1356;
  Mul 1561 42 1202; Mul 1071 40 1083; Sub 1561 1561 1071; Mul 1071 43 1202; Sub 1561 1561 1071;
  Mul 1071 44 1395; Add 1561 1561 1071; Mul 1071 35 1561; Add 1222 1222 1071; Sub 1092 1092 1222;
  Mul 1222 19 1092; Mul 1071 38 1490; Sub 1222 1222 1071; Mul 1561 19 1561; Mul 1071 41 1490;
  Sub 1561 1561 1071; Mul 1071 12 1356; Mul 1532 35 1532; Add 1071 1071 1532; Sub 1561 1561 1071;
  Mul 1071 35 1561; Mul 1532 46 1356; Add 1071 1071 1532; Sub 1222 1222 1071; Sub 1131 1131 1222;
  Sub 1131 1131 1514; Mul 1071 50 1408; Mul 1532 1039 1071].
Definition casadi_f0_614 : list instruction := [
  Mul 1288 50 1395; Mul 1020 19 1288; Mul 1309 49 1490; Sub 1020 1020 1309; Mul 1309 51 1356;
  Sub 1020 1020 1309; Mul 1309 1041 1020; Sub 1592 1532 1309; Mul 1592 37 1592; Add 1131 1131 1592;
  Mul 1592 49 1356; Mul 1661 35 1288; Add 1592 1592 1661; Mul 1661 51 1490; Sub 1592 1592 1661;
  Mul 1661 64 1592; Add 1309 1661 1309; Mul 1309 37 1309; Add 1309 1514 1309; Add 1131 1131 1309;
  Mul 1361 43 1083; Mul 1026 42 1083; Mul 1290 40 1202; Add 1026 1026 1290; Sub 1361 1361 1026;
  Mul 1026 44 1408; Sub 1361 1361 1026; Mul 1026 67 1361; Mul 1290 19 1026; Mul 1669 71 1490;
  Sub 1290 1290 1669; Mul 1669 75 1356; Mul 1492 16 1492; Mul 1631 21 1083; Add 1492 1492 1631;
  Mul 1408 74 1408; Mul 1395 20 1395; Mul 1395 34 1395; Sub 1408 1408 1395; Add 1492 1492 1408;
  Add 1408 1492 1492; Mul 1395 35 1408; Sub 1669 1669 1395; Add 1290 1290 1669; Mul 1669 73 1356;
  Mul 1395 35 1492; Sub 1669 1669 1395; Mul 1395 19 1361; Mul 1631 70 1490; Sub 1395 1395 1631;
  Add 1669 1669 1395; Sub 1290 1290 1669; Mul 1669 76 1071; Mul 1395 37 1592; Mul 1631 57 1395;
  Sub 1669 1669 1631; Sub 1290 1290 1669; Mul 1669 67 1290; Mul 1669 66 1669; Arg 1631 1 135; Mul 1322 53 1631;
  Mul 1430 77 1322; Sub 1669 1669 1430; Mul 1631 66 1631; Mul 1430 11 1631; Mul 1028 53 1131;
  Add 1430 1430 1028; Sub 1669 1669 1430; Mul 1430 53 1669; Mul 1028 78 1631; Add 1430 1430 1028;
  Add 1131 1131 1430; Sub 1131 1131 1309; Mul 1028 87 1322; Mul 1307 83 1071; Mul 1266 66 1307;
  Add 1028 1028 1266; Mul 1266 88 1631; Mul 1592 83 1592; Mul 1385 53 1592; Add 1266 1266 1385;
  Add 1028 1028 1266; Mul 1266 1054 1028; Mul 1385 83 1020; Mul 1259 1058 1385; Sub 1269 1266 1259;
  Mul 1269 80 1269; Add 1131 1131 1269; Add 1309 1309 1430; Mul 1430 66 1592; Mul 1269 88 1322;
  Sub 1430 1430 1269; Mul 1269 87 1631; Mul 1485 53 1307; Sub 1269 1269 1485; Add 1430 1430 1269;
  Mul 1269 93 1430; Add 1259 1269 1259; Mul 1259 80 1259; Add 1309 1309 1259; Add 1131 1131 1309;
  Mul 1259 9 1131; Add 1635 1635 1259; Mul 1669 66 1669; Mul 1259 78 1322; Sub 1669 1669 1259;
  Sub 1669 1669 1290; Mul 1290 72 1028; Mul 1259 80 1430; Mul 1485 63 1259; Sub 1290 1290 1485;
  Sub 1669 1669 1290; Mul 1290 67 1669; Mul 1290 8 1290; Mul 1591 9 1591; Mul 1485 97 1591; Sub 1290 1290 1485;
  Add 1635 1635 1290; Mul 1290 9 1635; Mul 1485 84 1435; Add 1290 1290 1485; Sub 1485 1290 1309;
  Mul 1430 104 1430; Mul 1531 8 1430; Mul 1128 103 1591; Sub 1531 1531 1128; Mul 1128 105 1435;
  Mul 1508 104 1028; Mul 1210 9 1508; Sub 1128 1128 1210; Sub 1531 1531 1128; Mul 1128 33 1531;
  Mul 1210 104 1385; Mul 1136 1066 1210; Add 1399 1128 1136; Mul 1399 100 1399; Sub 1485 1485 1399;
  Mul 1635 8 1635; Mul 1399 84 1591; Sub 1635 1635 1399; Sub 1635 1635 1669; Mul 1669 103 1435; Mul 1399 9 1430;
  Add 1669 1669 1399; Mul 1399 105 1591; Mul 1201 8 1508; Add 1399 1399 1201; Sub 1669 1669 1399;
  Mul 1399 96 1669].
Definition casadi_f0_615 : list instruction := [
  Mul 1201 100 1531; Mul 1291 117 1201; Sub 1399 1399 1291; Add 1635 1635 1399; Mul 1635 67 1635;
  Mul 1635 114 1635; Arg 1399 1 133; Mul 1291 113 1399; Mul 1625 116 1291; Sub 1635 1635 1625;
  Mul 1399 114 1399; Mul 1625 119 1399; Sub 1131 1131 1290; Sub 1131 1131 1309; Mul 1309 1044 1669;
  Sub 1136 1309 1136; Mul 1136 100 1136; Add 1131 1131 1136; Sub 1131 1131 1485; Mul 1131 113 1131;
  Add 1625 1625 1131; Sub 1635 1635 1625; Mul 1635 113 1635; Mul 1625 118 1399; Add 1635 1635 1625;
  Sub 1485 1485 1635; Mul 1531 120 1531; Mul 1635 114 1531; Mul 1625 60 1291; Sub 1635 1635 1625;
  Mul 1625 121 1399; Mul 1131 120 1669; Mul 1136 113 1131; Add 1625 1625 1136; Add 1635 1635 1625;
  Mul 1625 112 1635; Mul 1136 120 1210; Mul 1290 123 1136; Add 1625 1625 1290; Mul 1625 99 1625;
  Sub 1485 1485 1625; Mul 1635 125 1635; Mul 1635 110 1635; Mul 1625 125 1136; Mul 1625 126 1625;
  Add 1635 1635 1625; Mul 1635 122 1635; Add 1485 1485 1635; Div 1635 1485 92; Mul 1485 6 1485;
  Mul 1625 130 1435; Mul 1561 19 1561; Mul 1290 46 1490; Sub 1561 1561 1290; Mul 1092 35 1092; Mul 1290 38 1356;
  Add 1092 1092 1290; Add 1561 1561 1092; Mul 1395 52 1395; Mul 1092 76 1020; Add 1395 1395 1092;
  Add 1561 1561 1395; Mul 1395 66 1561; Mul 1092 129 1322; Sub 1395 1395 1092; Mul 1092 132 1631;
  Mul 1290 70 1356; Mul 1052 35 1361; Add 1290 1290 1052; Mul 1052 73 1490; Mul 1035 19 1492;
  Add 1052 1052 1035; Add 1290 1290 1052; Mul 1408 19 1408; Mul 1052 75 1490; Add 1408 1408 1052;
  Mul 1026 35 1026; Mul 1052 71 1356; Add 1026 1026 1052; Add 1408 1408 1026; Sub 1290 1290 1408;
  Mul 1408 133 1071; Mul 1020 37 1020; Mul 1020 57 1020; Sub 1408 1408 1020; Sub 1290 1290 1408;
  Mul 1408 53 1290; Add 1092 1092 1408; Add 1395 1395 1092; Mul 1259 27 1259; Mul 1092 72 1385;
  Add 1259 1259 1092; Add 1395 1395 1259; Mul 1259 9 1395; Add 1625 1625 1259; Add 1259 1290 1290;
  Mul 1259 66 1259; Mul 1092 136 1322; Sub 1259 1259 1092; Mul 1092 129 1631; Mul 1408 53 1561;
  Add 1092 1092 1408; Sub 1259 1259 1092; Mul 1092 66 1290; Mul 1408 132 1322; Sub 1092 1092 1408;
  Sub 1259 1259 1092; Mul 1028 138 1028; Mul 1092 80 1385; Mul 1092 63 1092; Sub 1028 1028 1092;
  Sub 1259 1259 1028; Add 1028 1259 1259; Mul 1028 8 1028; Mul 1092 139 1591; Sub 1028 1028 1092;
  Add 1625 1625 1028; Mul 1028 8 1259; Mul 1092 137 1591; Sub 1028 1028 1092; Sub 1625 1625 1028;
  Mul 1669 140 1669; Mul 1028 100 1210; Mul 1028 117 1028; Sub 1669 1669 1028; Add 1625 1625 1669;
  Mul 1669 141 1136; Mul 1669 121 1669; Mul 1028 142 1131; Add 1669 1669 1028; Sub 1625 1625 1669;
  Mul 1625 114 1625; Mul 1669 134 1291; Sub 1625 1625 1669; Mul 1669 145 1399; Mul 1028 8 1395;
  Mul 1092 130 1591; Sub 1028 1028 1092; Mul 1092 137 1435; Mul 1408 9 1259; Add 1092 1092 1408;
  Sub 1028 1028 1092; Mul 1201 111 1201; Mul 1092 96 1210; Add 1201 1201 1092; Add 1028 1028 1201;
  Mul 1201 141 1531; Mul 1201 124 1201; Mul 1136 146 1136].
Definition casadi_f0_616 : list instruction := [
  Add 1201 1201 1136; Sub 1028 1028 1201; Mul 1028 113 1028; Add 1669 1669 1028; Sub 1625 1625 1669;
  Mul 1669 1073 1625; Add 1485 1485 1669; Mul 1669 150 1399; Mul 1028 149 1435; Mul 1201 148 1210;
  Mul 1136 147 1508; Mul 1092 109 1136; Sub 1201 1201 1092; Add 1259 1259 1201; Mul 1201 9 1259;
  Add 1028 1028 1201; Mul 1210 151 1210; Mul 1201 147 1430; Mul 1092 109 1201; Add 1210 1210 1092;
  Add 1395 1395 1210; Mul 1210 8 1395; Mul 1092 152 1591; Sub 1210 1210 1092; Sub 1028 1028 1210;
  Mul 1210 148 1435; Mul 1092 9 1136; Sub 1210 1210 1092; Mul 1092 8 1201; Mul 1408 151 1591;
  Sub 1092 1092 1408; Sub 1210 1210 1092; Mul 1092 108 1210; Add 1028 1028 1092; Mul 1028 113 1028;
  Add 1669 1669 1028; Mul 1028 152 1435; Mul 1395 9 1395; Add 1028 1028 1395; Mul 1259 8 1259;
  Mul 1395 149 1591; Sub 1259 1259 1395; Add 1028 1028 1259; Mul 1259 151 1435; Mul 1395 9 1201;
  Add 1259 1259 1395; Mul 1395 148 1591; Mul 1092 8 1136; Add 1395 1395 1092; Sub 1259 1259 1395;
  Mul 1259 108 1259; Add 1028 1028 1259; Mul 1028 114 1028; Mul 1259 155 1291; Sub 1028 1028 1259;
  Add 1669 1669 1028; Mul 1028 1050 1669; Add 1485 1485 1028; Mul 1028 159 1435; Mul 1259 156 1592;
  Mul 1259 82 1259; Mul 1395 157 1385; Add 1259 1259 1395; Sub 1561 1561 1259; Mul 1259 66 1561;
  Mul 1395 158 1322; Sub 1259 1259 1395; Mul 1395 161 1631; Mul 1385 156 1385; Mul 1385 87 1385;
  Mul 1092 160 1307; Sub 1385 1385 1092; Sub 1290 1290 1385; Mul 1385 53 1290; Add 1395 1395 1385;
  Add 1259 1259 1395; Mul 1395 9 1259; Add 1028 1028 1395; Mul 1290 66 1290; Mul 1395 161 1322;
  Sub 1290 1290 1395; Mul 1395 158 1631; Mul 1561 53 1561; Add 1395 1395 1561; Sub 1290 1290 1395;
  Mul 1395 8 1290; Mul 1561 163 1591; Sub 1395 1395 1561; Add 1028 1028 1395; Mul 1395 167 1631;
  Mul 1561 166 1592; Mul 1385 53 1561; Add 1395 1395 1385; Mul 1385 164 1322; Mul 1092 156 1307;
  Mul 1408 66 1092; Add 1385 1385 1408; Sub 1395 1395 1385; Mul 1385 8 1395; Mul 1408 165 1591;
  Sub 1385 1385 1408; Mul 1408 169 1435; Mul 1561 66 1561; Mul 1020 167 1322; Sub 1561 1561 1020;
  Mul 1020 164 1631; Mul 1092 53 1092; Sub 1020 1020 1092; Sub 1561 1561 1020; Mul 1020 9 1561;
  Add 1408 1408 1020; Sub 1385 1385 1408; Mul 1385 108 1385; Sub 1028 1028 1385; Mul 1028 114 1028;
  Mul 1385 162 1291; Sub 1028 1028 1385; Mul 1385 170 1399; Mul 1259 8 1259; Mul 1408 159 1591;
  Sub 1259 1259 1408; Mul 1408 163 1435; Mul 1290 9 1290; Add 1408 1408 1290; Sub 1259 1259 1408;
  Mul 1408 165 1435; Mul 1290 9 1395; Add 1408 1408 1290; Mul 1290 8 1561; Mul 1020 169 1591;
  Sub 1290 1290 1020; Add 1408 1408 1290; Mul 1290 108 1408; Add 1259 1259 1290; Mul 1259 113 1259;
  Add 1385 1385 1259; Sub 1028 1028 1385; Mul 1385 1070 1028; Add 1485 1485 1385; Mul 1385 179 1435;
  Mul 1259 177 1631; Mul 1290 174 1288; Mul 1288 173 1288; Mul 1020 49 1288; Add 1290 1290 1020;
  Add 1290 1290 1514; Mul 1020 174 1356; Mul 1092 35 1288; Add 1020 1020 1092].
Definition casadi_f0_617 : list instruction := [
  Mul 1092 176 1490; Sub 1020 1020 1092; Mul 1092 62 1020; Mul 1026 176 1356; Mul 1052 19 1288;
  Mul 1035 174 1490; Sub 1052 1052 1035; Sub 1026 1026 1052; Mul 1052 48 1026; Sub 1092 1092 1052;
  Add 1092 1290 1092; Mul 1052 53 1092; Add 1259 1259 1052; Mul 1052 176 1071; Sub 1361 1361 1052;
  Mul 1052 19 1361; Mul 1035 180 1490; Sub 1052 1052 1035; Mul 1035 182 1356; Mul 1288 56 1288;
  Mul 1071 174 1071; Sub 1288 1288 1071; Sub 1288 1288 1492; Mul 1492 35 1288; Add 1035 1035 1492;
  Add 1052 1052 1035; Mul 1035 55 1020; Add 1052 1052 1035; Mul 1035 66 1052; Mul 1492 181 1322;
  Sub 1035 1035 1492; Sub 1259 1259 1035; Mul 1035 86 1020; Sub 1259 1259 1035; Mul 1035 9 1259;
  Add 1385 1385 1035; Mul 1035 181 1631; Mul 1052 53 1052; Add 1035 1035 1052; Mul 1092 66 1092;
  Mul 1052 177 1322; Sub 1092 1092 1052; Add 1035 1035 1092; Mul 1092 91 1020; Add 1035 1035 1092;
  Mul 1092 8 1035; Mul 1052 184 1591; Sub 1092 1092 1052; Add 1385 1385 1092; Mul 1020 102 1020;
  Mul 1092 66 1026; Mul 1052 178 1322; Sub 1092 1092 1052; Mul 1052 8 1092; Mul 1492 185 1591;
  Sub 1052 1052 1492; Mul 1492 187 1435; Mul 1071 178 1631; Mul 1159 53 1026; Add 1071 1071 1159;
  Mul 1159 9 1071; Add 1492 1492 1159; Add 1052 1052 1492; Mul 1052 108 1052; Sub 1020 1020 1052;
  Add 1385 1385 1020; Mul 1385 114 1385; Mul 1020 183 1291; Sub 1385 1385 1020; Mul 1020 186 1399;
  Mul 1259 8 1259; Mul 1052 179 1591; Sub 1259 1259 1052; Mul 1052 184 1435; Mul 1035 9 1035;
  Add 1052 1052 1035; Sub 1259 1259 1052; Mul 1052 185 1435; Mul 1035 9 1092; Add 1052 1052 1035;
  Mul 1035 8 1071; Mul 1492 187 1591; Sub 1035 1035 1492; Sub 1052 1052 1035; Mul 1035 108 1052;
  Add 1259 1259 1035; Mul 1259 113 1259; Add 1020 1020 1259; Sub 1385 1385 1020; Mul 1020 1059 1385;
  Add 1485 1485 1020; Mul 1020 199 1435; Mul 1259 196 1356; Mul 1035 197 1202; Mul 1492 195 1083;
  Sub 1035 1035 1492; Mul 1492 190 1083; Mul 1159 192 1202; Add 1492 1492 1159; Mul 1159 198 1492;
  Add 1035 1035 1159; Mul 1159 35 1035; Add 1259 1259 1159; Mul 1159 189 1490; Mul 1612 25 1492;
  Mul 1578 190 1202; Mul 1600 192 1083; Sub 1578 1578 1600; Mul 1600 32 1578; Add 1612 1612 1600;
  Mul 1600 19 1612; Add 1159 1159 1600; Sub 1259 1259 1159; Mul 1159 48 1492; Mul 1600 19 1578;
  Mul 1298 194 1490; Sub 1600 1600 1298; Mul 1298 55 1600; Add 1159 1159 1298; Sub 1259 1259 1159;
  Mul 1159 66 1259; Mul 1298 193 1322; Sub 1159 1159 1298; Mul 1298 202 1631; Mul 1463 198 1578;
  Mul 1144 197 1083; Mul 1651 195 1202; Add 1144 1144 1651; Sub 1463 1463 1144; Mul 1144 62 1600;
  Mul 1651 194 1356; Mul 1578 35 1578; Add 1651 1651 1578; Mul 1578 48 1651; Sub 1144 1144 1578;
  Add 1144 1463 1144; Mul 1578 53 1144; Add 1298 1298 1578; Add 1159 1159 1298; Mul 1298 86 1600;
  Sub 1159 1159 1298; Mul 1298 9 1159; Add 1020 1020 1298; Mul 1144 66 1144; Mul 1298 202 1322;
  Sub 1144 1144 1298; Mul 1298 193 1631; Mul 1259 53 1259; Add 1298 1298 1259].
Definition casadi_f0_618 : list instruction := [
  Sub 1144 1144 1298; Mul 1298 91 1600; Add 1144 1144 1298; Mul 1298 8 1144; Mul 1259 205 1591;
  Sub 1298 1298 1259; Add 1020 1020 1298; Mul 1600 102 1600; Mul 1298 66 1651; Mul 1259 203 1322;
  Sub 1298 1298 1259; Mul 1259 191 1631; Mul 1578 53 1492; Sub 1259 1259 1578; Add 1298 1298 1259;
  Mul 1259 8 1298; Mul 1578 206 1591; Sub 1259 1259 1578; Mul 1578 208 1435; Mul 1250 191 1322;
  Mul 1194 66 1492; Add 1250 1250 1194; Mul 1194 203 1631; Mul 1162 53 1651; Add 1194 1194 1162;
  Add 1250 1250 1194; Mul 1194 9 1250; Sub 1578 1578 1194; Sub 1259 1259 1578; Mul 1259 108 1259;
  Sub 1600 1600 1259; Add 1020 1020 1600; Mul 1020 114 1020; Mul 1600 204 1291; Sub 1020 1020 1600;
  Mul 1600 207 1399; Mul 1159 8 1159; Mul 1259 199 1591; Sub 1159 1159 1259; Mul 1259 205 1435; Mul 1144 9 1144;
  Add 1259 1259 1144; Sub 1159 1159 1259; Mul 1259 206 1435; Mul 1144 9 1298; Add 1259 1259 1144;
  Mul 1144 208 1591; Mul 1578 8 1250; Add 1144 1144 1578; Sub 1259 1259 1144; Mul 1144 108 1259;
  Add 1159 1159 1144; Mul 1159 113 1159; Add 1600 1600 1159; Sub 1020 1020 1600; Mul 1600 1043 1020;
  Add 1485 1485 1600; Div 1485 1485 1085; Mul 1600 1072 1485; Sub 1635 1635 1600; Mul 1600 211 1635;
  Mul 1159 216 1399; Arg 1144 1 132; Mul 1578 215 1144; Mul 1194 113 1578; Sub 1159 1159 1194;
  Mul 1194 218 1159; Mul 1162 114 1443; Mul 1501 0 1291; Sub 1162 1162 1501; Mul 1501 217 1162;
  Add 1194 1194 1501; Mul 1144 216 1144; Mul 1501 1 1144; Mul 1518 215 1422; Add 1501 1501 1518;
  Sub 1194 1194 1501; Mul 1501 0 1399; Mul 1518 113 1443; Add 1501 1501 1518; Mul 1518 220 1501;
  Mul 1119 114 1578; Mul 1330 216 1291; Add 1119 1119 1330; Mul 1330 221 1119; Sub 1518 1518 1330;
  Sub 1194 1194 1518; Mul 1518 214 1194; Mul 1330 213 1518; Mul 1330 212 1330; Mul 1280 225 1330;
  Mul 1479 114 1144; Mul 1140 215 1291; Sub 1479 1479 1140; Mul 1140 101 1479; Mul 1245 107 1578;
  Sub 1140 1140 1245; Mul 1245 223 1140; Add 1355 1280 1245; Mul 1021 216 1422; Mul 1353 1 1578;
  Sub 1021 1021 1353; Mul 1353 113 1144; Mul 1206 215 1399; Add 1353 1353 1206; Mul 1206 218 1353;
  Mul 1686 228 1162; Add 1206 1206 1686; Add 1021 1021 1206; Mul 1206 221 1479; Mul 1686 224 1501;
  Add 1206 1206 1686; Sub 1021 1021 1206; Mul 1206 214 1021; Mul 1686 213 1206; Mul 1686 212 1686;
  Mul 1034 231 1686; Mul 1320 101 1119; Mul 1644 107 1144; Add 1320 1320 1644; Mul 1644 230 1320;
  Sub 1034 1034 1644; Sub 1644 1355 1034; Add 1245 1245 1280; Sub 1034 1245 1034; Add 1280 1644 1034;
  Mul 1495 144 1399; Mul 1689 215 1495; Mul 1432 240 1144; Add 1689 1689 1432; Mul 1432 236 1291;
  Mul 1546 238 1399; Add 1432 1432 1546; Mul 1546 220 1432; Mul 1677 237 1119; Add 1546 1546 1677;
  Sub 1689 1689 1546; Mul 1546 115 1578; Add 1689 1689 1546; Mul 1546 212 1320; Mul 1677 242 1546;
  Mul 1427 101 1399; Mul 1248 241 1427; Add 1677 1677 1248; Add 1677 1689 1677; Mul 1248 244 1677;
  Mul 1030 213 1021; Mul 1124 243 1030; Add 1120 1248 1124].
Definition casadi_f0_619 : list instruction := [
  Mul 1244 237 1479; Mul 1209 224 1432; Sub 1244 1244 1209; Mul 1495 216 1495; Mul 1209 240 1578;
  Sub 1495 1495 1209; Sub 1244 1244 1495; Mul 1495 115 1144; Sub 1244 1244 1495; Mul 1495 212 1140;
  Mul 1495 242 1495; Mul 1209 247 1427; Sub 1495 1495 1209; Sub 1495 1244 1495; Mul 1209 249 1495;
  Mul 1165 213 1194; Mul 1345 248 1165; Add 1036 1209 1345; Sub 1680 1120 1036; Sub 1280 1280 1680;
  Add 1345 1345 1209; Add 1124 1124 1248; Sub 1248 1345 1124; Add 1280 1280 1248; Mul 1248 9 1159;
  Mul 1209 217 1435; Add 1248 1248 1209; Mul 1209 8 1119; Mul 1680 220 1591; Add 1209 1209 1680;
  Sub 1248 1248 1209; Mul 1209 254 1248; Mul 1680 218 1435; Mul 1439 9 1162; Add 1680 1680 1439;
  Mul 1439 8 1501; Mul 1253 221 1591; Sub 1439 1439 1253; Sub 1680 1680 1439; Mul 1439 253 1680;
  Add 1209 1209 1439; Mul 1159 8 1159; Mul 1439 217 1591; Sub 1159 1159 1439; Mul 1439 220 1435;
  Mul 1253 9 1119; Sub 1439 1439 1253; Sub 1159 1159 1439; Mul 1439 257 1159; Mul 1253 221 1435;
  Mul 1240 9 1501; Add 1253 1253 1240; Mul 1240 8 1162; Mul 1171 218 1591; Sub 1240 1240 1171;
  Add 1253 1253 1240; Mul 1240 256 1253; Add 1439 1439 1240; Mul 1240 259 1144; Sub 1171 1422 1598;
  Mul 1354 215 1171; Add 1240 1240 1354; Sub 1439 1439 1240; Add 1209 1209 1439; Mul 1439 213 1209;
  Mul 1240 276 1439; Mul 1354 114 1435; Mul 1653 9 1291; Sub 1354 1354 1653; Mul 1653 8 1399; Mul 1609 113 1591;
  Sub 1653 1653 1609; Sub 1354 1354 1653; Mul 1653 260 1354; Mul 1609 9 1399; Mul 1588 113 1435;
  Add 1609 1609 1588; Mul 1588 8 1291; Mul 1407 114 1591; Add 1588 1588 1407; Sub 1609 1609 1588;
  Mul 1588 263 1609; Add 1653 1653 1588; Mul 1588 265 1653; Mul 1407 8 1479; Mul 1491 224 1591;
  Sub 1407 1407 1491; Mul 1491 9 1353; Mul 1147 228 1435; Add 1491 1491 1147; Add 1407 1407 1491;
  Mul 1491 262 1407; Add 1588 1588 1491; Mul 1491 127 1354; Mul 1147 268 1609; Add 1491 1491 1147;
  Mul 1147 216 1491; Mul 1558 267 1578; Sub 1147 1147 1558; Add 1588 1588 1147; Mul 1147 135 1248;
  Mul 1558 95 1144; Add 1147 1147 1558; Sub 1588 1588 1147; Mul 1147 102 1479; Mul 1558 108 1578;
  Sub 1147 1147 1558; Mul 1558 79 1407; Mul 1570 8 1353; Mul 1450 228 1591; Sub 1570 1570 1450; Mul 1450 9 1479;
  Mul 1295 224 1435; Add 1450 1450 1295; Sub 1570 1570 1450; Mul 1450 85 1570; Mul 1295 81 1578;
  Sub 1450 1450 1295; Add 1558 1558 1450; Add 1558 1147 1558; Mul 1450 269 1558; Mul 1450 275 1450;
  Mul 1295 79 1354; Mul 1055 85 1609; Add 1295 1295 1055; Mul 1055 102 1399; Sub 1295 1295 1055;
  Mul 1662 272 1295; Add 1450 1450 1662; Sub 1450 1588 1450; Mul 1662 258 1450; Add 1476 1240 1662;
  Mul 1564 254 1407; Mul 1053 265 1680; Add 1564 1564 1053; Mul 1053 216 1171; Mul 1199 259 1578;
  Sub 1053 1053 1199; Mul 1199 257 1570; Mul 1316 273 1253; Add 1199 1199 1316; Add 1053 1053 1199;
  Add 1564 1564 1053; Mul 1053 213 1564; Mul 1199 284 1053; Mul 1316 253 1653; Mul 1367 262 1248;
  Add 1316 1316 1367; Mul 1491 215 1491].
Definition casadi_f0_620 : list instruction := [
  Mul 1367 267 1144; Add 1491 1491 1367; Sub 1316 1316 1491; Mul 1491 95 1578; Mul 1367 135 1407;
  Add 1491 1491 1367; Add 1316 1316 1491; Mul 1491 79 1248; Mul 1367 85 1159; Mul 1403 81 1144;
  Sub 1367 1367 1403; Add 1491 1491 1367; Mul 1367 102 1119; Mul 1403 108 1144; Add 1367 1367 1403;
  Sub 1491 1491 1367; Mul 1403 269 1491; Mul 1141 275 1403; Mul 1375 283 1295; Add 1141 1141 1375;
  Sub 1141 1316 1141; Mul 1375 279 1141; Add 1237 1199 1375; Sub 1483 1476 1237; Mul 1087 292 1295;
  Mul 1247 288 1609; Mul 1693 287 1435; Mul 1275 108 1162; Mul 1019 9 1275; Add 1693 1693 1019;
  Mul 1019 102 1422; Mul 1540 108 1501; Add 1019 1019 1540; Mul 1540 8 1019; Mul 1139 289 1591;
  Sub 1540 1540 1139; Sub 1693 1693 1540; Mul 1540 264 1693; Add 1247 1247 1540; Mul 1540 291 1354;
  Mul 1275 8 1275; Mul 1139 287 1591; Sub 1275 1275 1139; Mul 1139 289 1435; Mul 1019 9 1019;
  Add 1139 1139 1019; Add 1275 1275 1139; Mul 1139 261 1275; Add 1540 1540 1139; Sub 1247 1247 1540;
  Mul 1540 281 1564; Mul 1139 278 1367; Sub 1540 1540 1139; Mul 1139 255 1147; Mul 1019 270 1209;
  Add 1139 1139 1019; Sub 1540 1540 1139; Add 1247 1247 1540; Mul 1540 213 1247; Mul 1540 269 1540;
  Mul 1139 275 1540; Add 1019 1087 1139; Mul 1217 288 1159; Mul 1506 256 1693; Add 1217 1217 1506;
  Mul 1506 295 1144; Mul 1633 102 1162; Mul 1176 215 1633; Add 1506 1506 1176; Sub 1217 1217 1506;
  Mul 1506 291 1248; Mul 1176 253 1275; Add 1506 1506 1176; Sub 1217 1217 1506; Mul 1506 296 1147;
  Mul 1176 254 1354; Mul 1394 261 1680; Add 1176 1176 1394; Mul 1394 257 1609; Mul 1145 264 1253;
  Add 1394 1394 1145; Add 1176 1176 1394; Mul 1394 270 1176; Add 1506 1506 1394; Mul 1394 274 1564;
  Mul 1145 278 1055; Sub 1394 1394 1145; Sub 1506 1506 1394; Add 1217 1217 1506; Mul 1506 213 1217;
  Mul 1506 269 1506; Mul 1394 282 1506; Mul 1145 297 1491; Add 1616 1394 1145; Mul 1278 216 1633;
  Mul 1683 295 1578; Sub 1278 1278 1683; Mul 1683 288 1570; Mul 1093 273 1693; Add 1683 1683 1093;
  Add 1278 1278 1683; Mul 1683 291 1407; Mul 1093 265 1275; Add 1683 1683 1093; Sub 1278 1278 1683;
  Mul 1683 274 1209; Mul 1093 255 1055; Sub 1683 1683 1093; Mul 1093 281 1176; Mul 1351 296 1367;
  Sub 1093 1093 1351; Sub 1683 1683 1093; Add 1278 1278 1683; Mul 1683 213 1278; Mul 1683 269 1683;
  Mul 1093 271 1683; Mul 1351 300 1558; Add 1352 1093 1351; Add 1139 1139 1087; Add 1087 1352 1139;
  Add 1616 1616 1087; Sub 1453 1019 1616; Add 1145 1145 1394; Add 1351 1351 1093; Add 1019 1351 1019;
  Add 1145 1145 1019; Sub 1139 1139 1145; Add 1453 1453 1139; Add 1375 1375 1199; Add 1662 1662 1240;
  Sub 1240 1375 1662; Add 1453 1453 1240; Sub 1483 1483 1453; Mul 1453 66 1248; Mul 1240 253 1322;
  Sub 1453 1453 1240; Mul 1240 53 1159; Mul 1199 256 1631; Add 1240 1240 1199; Sub 1453 1453 1240;
  Mul 1240 308 1453; Mul 1199 66 1680; Mul 1139 254 1322; Sub 1199 1199 1139; Mul 1139 257 1631;
  Mul 1093 53 1253; Add 1139 1139 1093; Sub 1199 1199 1139; Mul 1139 304 1199].
Definition casadi_f0_621 : list instruction := [
  Add 1240 1240 1139; Mul 1139 53 1248; Mul 1093 253 1631; Add 1139 1139 1093; Mul 1093 66 1159;
  Mul 1394 256 1322; Sub 1093 1093 1394; Add 1139 1139 1093; Mul 1093 311 1139; Mul 1394 254 1631;
  Mul 1263 53 1680; Add 1394 1394 1263; Mul 1263 66 1253; Mul 1579 257 1322; Sub 1263 1263 1579;
  Add 1394 1394 1263; Mul 1263 310 1394; Add 1093 1093 1263; Mul 1263 313 1144; Add 1579 1593 1171;
  Mul 1090 215 1579; Add 1263 1263 1090; Sub 1093 1093 1263; Add 1240 1240 1093; Mul 1093 213 1240;
  Mul 1263 330 1093; Mul 1090 66 1354; Mul 1285 261 1322; Sub 1090 1090 1285; Mul 1285 53 1609;
  Mul 1086 264 1631; Add 1285 1285 1086; Sub 1090 1090 1285; Mul 1285 314 1090; Mul 1086 53 1354;
  Mul 1108 261 1631; Add 1086 1086 1108; Mul 1108 66 1609; Mul 1346 264 1322; Sub 1108 1108 1346;
  Add 1086 1086 1108; Mul 1108 317 1086; Add 1285 1285 1108; Mul 1108 319 1285; Mul 1346 66 1407;
  Mul 1617 265 1322; Sub 1346 1346 1617; Mul 1617 53 1570; Mul 1589 273 1631; Add 1617 1617 1589;
  Sub 1346 1346 1617; Mul 1617 316 1346; Add 1108 1108 1617; Mul 1617 128 1090; Mul 1589 322 1086;
  Add 1617 1617 1589; Mul 1589 216 1617; Mul 1200 321 1578; Sub 1589 1589 1200; Add 1108 1108 1589;
  Mul 1589 131 1453; Mul 1200 68 1144; Add 1589 1589 1200; Sub 1108 1108 1589; Mul 1589 91 1407;
  Mul 1200 86 1570; Add 1589 1589 1200; Add 1589 1147 1589; Mul 1200 61 1346; Mul 1130 53 1407;
  Mul 1611 265 1631; Add 1130 1130 1611; Mul 1611 66 1570; Mul 1383 273 1322; Sub 1611 1611 1383;
  Add 1130 1130 1611; Mul 1611 54 1130; Mul 1383 47 1578; Sub 1611 1611 1383; Add 1200 1200 1611;
  Add 1200 1589 1200; Mul 1611 323 1200; Mul 1611 329 1611; Mul 1383 91 1354; Mul 1609 86 1609;
  Add 1383 1383 1609; Sub 1383 1383 1055; Mul 1609 61 1090; Mul 1396 54 1086; Add 1609 1609 1396;
  Add 1609 1383 1609; Mul 1396 326 1609; Add 1611 1611 1396; Sub 1611 1108 1611; Mul 1396 312 1611;
  Add 1573 1263 1396; Mul 1393 308 1346; Mul 1221 319 1199; Add 1393 1393 1221; Mul 1221 216 1579;
  Mul 1283 313 1578; Sub 1221 1221 1283; Mul 1283 311 1130; Mul 1421 327 1394; Add 1283 1283 1421;
  Add 1221 1221 1283; Add 1393 1393 1221; Mul 1221 213 1393; Mul 1283 338 1221; Mul 1421 304 1285;
  Mul 1091 316 1453; Add 1421 1421 1091; Mul 1617 215 1617; Mul 1091 321 1144; Add 1617 1617 1091;
  Sub 1421 1421 1617; Mul 1617 68 1578; Mul 1091 131 1346; Add 1617 1617 1091; Add 1421 1421 1617;
  Mul 1617 91 1248; Mul 1159 86 1159; Add 1617 1617 1159; Sub 1617 1617 1367; Mul 1159 61 1453;
  Mul 1091 54 1139; Mul 1406 47 1144; Sub 1091 1091 1406; Add 1159 1159 1091; Add 1159 1617 1159;
  Mul 1091 323 1159; Mul 1406 329 1091; Mul 1447 337 1609; Add 1406 1406 1447; Sub 1406 1421 1406;
  Mul 1447 333 1406; Add 1664 1283 1447; Sub 1213 1573 1664; Mul 1500 346 1609; Mul 1170 342 1090;
  Mul 1449 86 1171; Sub 1449 1449 1275; Mul 1275 66 1449; Mul 1105 341 1322; Sub 1275 1275 1105;
  Mul 1105 343 1631; Mul 1171 91 1171; Sub 1693 1693 1171; Mul 1171 53 1693].
Definition casadi_f0_622 : list instruction := [
  Add 1105 1105 1171; Sub 1275 1275 1105; Mul 1105 315 1275; Add 1170 1170 1105; Mul 1105 345 1086;
  Mul 1171 341 1631; Mul 1449 53 1449; Add 1171 1171 1449; Mul 1693 66 1693; Mul 1449 343 1322;
  Sub 1693 1693 1449; Add 1171 1171 1693; Mul 1693 318 1171; Add 1105 1105 1693; Add 1170 1170 1105;
  Mul 1105 332 1617; Mul 1693 335 1393; Add 1105 1105 1693; Mul 1693 309 1589; Mul 1449 324 1240;
  Add 1693 1693 1449; Sub 1105 1105 1693; Add 1170 1170 1105; Mul 1105 213 1170; Mul 1105 323 1105;
  Mul 1693 329 1105; Add 1449 1500 1693; Mul 1571 342 1453; Mul 1164 304 1275; Add 1571 1571 1164;
  Mul 1164 345 1139; Mul 1684 310 1171; Add 1164 1164 1684; Mul 1684 350 1144; Mul 1680 86 1680;
  Mul 1253 91 1253; Sub 1680 1680 1253; Sub 1633 1633 1680; Mul 1680 215 1633; Add 1684 1684 1680;
  Sub 1164 1164 1684; Add 1571 1571 1164; Mul 1164 349 1589; Mul 1684 308 1090; Mul 1680 315 1199;
  Add 1684 1684 1680; Mul 1680 311 1086; Mul 1253 318 1394; Add 1680 1680 1253; Add 1684 1684 1680;
  Mul 1680 324 1684; Add 1164 1164 1680; Mul 1680 332 1383; Mul 1253 328 1393; Add 1680 1680 1253;
  Sub 1164 1164 1680; Add 1571 1571 1164; Mul 1164 213 1571; Mul 1164 323 1164; Mul 1680 336 1164;
  Mul 1253 351 1159; Add 1502 1680 1253; Mul 1646 342 1346; Mul 1474 319 1275; Add 1646 1646 1474;
  Mul 1474 216 1633; Mul 1416 350 1578; Sub 1474 1474 1416; Mul 1416 345 1130; Mul 1115 327 1171;
  Add 1416 1416 1115; Add 1474 1474 1416; Add 1646 1646 1474; Mul 1474 309 1383; Mul 1416 328 1240;
  Add 1474 1474 1416; Mul 1416 349 1617; Mul 1115 335 1684; Add 1416 1416 1115; Sub 1474 1474 1416;
  Add 1646 1646 1474; Mul 1474 213 1646; Mul 1474 323 1474; Mul 1416 325 1474; Mul 1115 354 1200;
  Add 1673 1416 1115; Add 1693 1693 1500; Add 1500 1673 1693; Add 1502 1502 1500; Sub 1325 1449 1502;
  Add 1253 1253 1680; Add 1115 1115 1416; Add 1449 1115 1449; Add 1253 1253 1449; Sub 1693 1693 1253;
  Add 1325 1325 1693; Add 1447 1447 1283; Add 1396 1396 1263; Sub 1263 1447 1396; Add 1325 1325 1263;
  Sub 1213 1213 1325; Mul 1325 19 1453; Mul 1263 304 1490; Sub 1325 1325 1263; Mul 1263 35 1144;
  Mul 1283 215 1356; Add 1263 1263 1283; Add 1325 1325 1263; Mul 1263 362 1325; Mul 1283 19 1199;
  Mul 1693 308 1490; Sub 1283 1283 1693; Mul 1693 313 1356; Mul 1416 35 1579; Add 1693 1693 1416;
  Sub 1283 1283 1693; Mul 1693 358 1283; Add 1263 1263 1693; Mul 1693 35 1453; Mul 1416 304 1356;
  Add 1693 1693 1416; Mul 1416 19 1144; Mul 1680 215 1490; Sub 1416 1416 1680; Sub 1693 1693 1416;
  Mul 1416 365 1693; Mul 1680 308 1356; Mul 1602 35 1199; Add 1680 1680 1602; Mul 1602 19 1579;
  Mul 1350 313 1490; Sub 1602 1602 1350; Add 1680 1680 1602; Mul 1602 364 1680; Add 1416 1416 1602;
  Mul 1602 367 1139; Sub 1350 1394 1513; Mul 1373 310 1350; Add 1602 1602 1373; Add 1416 1416 1602;
  Add 1263 1263 1416; Mul 1416 213 1263; Mul 1602 385 1416; Mul 1373 19 1090; Mul 1296 315 1490;
  Sub 1373 1373 1296; Mul 1296 368 1373; Mul 1478 35 1090; Mul 1024 315 1356].
Definition casadi_f0_623 : list instruction := [
  Add 1478 1478 1024; Mul 1024 39 1478; Mul 1303 373 1086; Add 1024 1024 1303; Add 1296 1296 1024;
  Mul 1024 372 1296; Mul 1303 19 1346; Mul 1297 319 1490; Sub 1303 1303 1297; Mul 1297 216 1356;
  Mul 1649 35 1578; Sub 1297 1297 1649; Sub 1303 1303 1297; Mul 1297 370 1303; Add 1024 1024 1297;
  Mul 1297 39 1373; Mul 1649 376 1478; Add 1297 1297 1649; Mul 1649 377 1297; Mul 1510 35 1346;
  Mul 1528 319 1356; Add 1510 1510 1528; Mul 1528 19 1578; Mul 1527 216 1490; Add 1528 1528 1527;
  Sub 1510 1510 1528; Mul 1528 375 1510; Add 1649 1649 1528; Add 1024 1024 1649; Mul 1649 69 1693;
  Add 1024 1024 1649; Mul 1649 62 1346; Mul 1528 55 1130; Mul 1527 48 1578; Sub 1528 1528 1527;
  Add 1649 1649 1528; Add 1649 1589 1649; Mul 1528 380 1303; Mul 1527 24 1510; Mul 1694 31 1130;
  Add 1527 1527 1694; Add 1528 1528 1527; Add 1528 1649 1528; Mul 1527 378 1528; Mul 1527 384 1527;
  Mul 1694 62 1090; Mul 1456 55 1086; Add 1694 1694 1456; Add 1694 1383 1694; Mul 1456 380 1373;
  Mul 1340 24 1478; Mul 1235 31 1086; Add 1340 1340 1235; Add 1456 1456 1340; Add 1456 1694 1456;
  Mul 1340 382 1456; Add 1527 1527 1340; Sub 1527 1024 1527; Mul 1340 366 1527; Add 1235 1602 1340;
  Mul 1597 362 1303; Mul 1183 372 1283; Add 1597 1597 1183; Mul 1183 365 1510; Mul 1166 377 1680;
  Add 1183 1183 1166; Mul 1166 367 1130; Mul 1196 327 1350; Add 1166 1166 1196; Add 1183 1183 1166;
  Add 1597 1597 1183; Mul 1183 213 1597; Mul 1166 393 1183; Mul 1196 358 1296; Mul 1667 370 1325;
  Add 1196 1196 1667; Mul 1667 364 1297; Mul 1697 375 1693; Add 1667 1667 1697; Add 1196 1196 1667;
  Mul 1667 69 1510; Sub 1196 1196 1667; Mul 1667 62 1453; Mul 1697 55 1139; Mul 1097 48 1144;
  Sub 1697 1697 1097; Add 1667 1667 1697; Add 1667 1617 1667; Mul 1697 380 1325; Mul 1097 24 1693;
  Mul 1143 31 1139; Add 1097 1097 1143; Add 1697 1697 1097; Add 1697 1667 1697; Mul 1097 378 1697;
  Mul 1143 384 1097; Mul 1455 392 1456; Add 1143 1143 1455; Sub 1143 1196 1143; Mul 1455 388 1143;
  Add 1389 1166 1455; Sub 1529 1235 1389; Mul 1193 401 1456; Mul 1226 397 1373; Mul 1333 48 1394;
  Mul 1337 55 1579; Sub 1333 1333 1337; Sub 1275 1275 1333; Mul 1333 19 1275; Mul 1337 396 1490;
  Sub 1333 1333 1337; Mul 1337 398 1356; Mul 1167 55 1199; Mul 1394 62 1394; Sub 1167 1167 1394;
  Sub 1633 1633 1167; Mul 1167 35 1633; Add 1337 1337 1167; Sub 1333 1333 1337; Mul 1337 369 1333;
  Add 1226 1226 1337; Mul 1337 400 1478; Mul 1167 396 1356; Mul 1275 35 1275; Add 1167 1167 1275;
  Mul 1633 19 1633; Mul 1275 398 1490; Sub 1633 1633 1275; Add 1167 1167 1633; Mul 1633 371 1167;
  Add 1337 1337 1633; Mul 1633 402 1086; Mul 1579 62 1579; Mul 1199 48 1199; Sub 1579 1579 1199;
  Sub 1171 1171 1579; Mul 1579 318 1171; Add 1633 1633 1579; Add 1337 1337 1633; Add 1226 1226 1337;
  Mul 1337 387 1667; Mul 1633 390 1597; Add 1337 1337 1633; Mul 1633 363 1649; Mul 1579 379 1263;
  Add 1633 1633 1579; Sub 1337 1337 1633; Add 1226 1226 1337; Mul 1337 213 1226].
Definition casadi_f0_624 : list instruction := [
  Mul 1337 378 1337; Mul 1633 384 1337; Add 1579 1193 1633; Mul 1199 397 1325; Mul 1275 358 1333;
  Add 1199 1199 1275; Mul 1275 400 1693; Mul 1394 364 1167; Add 1275 1275 1394; Mul 1394 402 1139;
  Mul 1205 310 1171; Add 1394 1394 1205; Add 1275 1275 1394; Add 1199 1199 1275; Mul 1275 405 1649;
  Mul 1394 362 1373; Mul 1205 369 1283; Add 1394 1394 1205; Mul 1205 365 1478; Mul 1655 371 1680;
  Add 1205 1205 1655; Mul 1655 367 1086; Mul 1255 318 1350; Add 1655 1655 1255; Add 1205 1205 1655;
  Add 1394 1394 1205; Mul 1205 379 1394; Add 1275 1275 1205; Mul 1205 387 1694; Mul 1655 383 1597;
  Add 1205 1205 1655; Sub 1275 1275 1205; Add 1199 1199 1275; Mul 1275 213 1199; Mul 1275 378 1275;
  Mul 1205 391 1275; Mul 1655 406 1697; Add 1255 1205 1655; Mul 1547 397 1303; Mul 1150 372 1333;
  Add 1547 1547 1150; Mul 1150 400 1510; Mul 1132 377 1167; Add 1150 1150 1132; Mul 1132 402 1130;
  Mul 1431 327 1171; Add 1132 1132 1431; Add 1150 1150 1132; Add 1547 1547 1150; Mul 1150 363 1694;
  Mul 1132 383 1263; Add 1150 1150 1132; Mul 1132 405 1667; Mul 1431 390 1394; Add 1132 1132 1431;
  Sub 1150 1150 1132; Add 1547 1547 1150; Mul 1150 213 1547; Mul 1150 378 1150; Mul 1132 381 1150;
  Mul 1431 409 1528; Add 1607 1132 1431; Add 1633 1633 1193; Add 1193 1607 1633; Add 1255 1255 1193;
  Sub 1621 1579 1255; Add 1655 1655 1205; Add 1431 1431 1132; Add 1579 1431 1579; Add 1655 1655 1579;
  Sub 1633 1633 1655; Add 1621 1621 1633; Add 1455 1455 1166; Add 1340 1340 1602; Sub 1602 1455 1340;
  Add 1621 1621 1602; Sub 1529 1529 1621; Mul 1621 413 1325; Sub 1602 1283 1636; Mul 1166 358 1602;
  Add 1621 1621 1166; Mul 1166 16 1693; Mul 1633 364 1083; Sub 1166 1166 1633; Mul 1633 15 1139;
  Mul 1132 310 1202; Add 1633 1633 1132; Sub 1166 1166 1633; Mul 1633 419 1166; Mul 1132 16 1680;
  Mul 1205 365 1083; Sub 1132 1132 1205; Mul 1205 367 1202; Mul 1233 15 1350; Add 1205 1205 1233;
  Sub 1132 1132 1205; Mul 1205 418 1132; Add 1633 1633 1205; Mul 1205 15 1693; Mul 1233 364 1202;
  Add 1205 1205 1233; Mul 1233 16 1139; Mul 1172 310 1083; Sub 1233 1233 1172; Add 1205 1205 1233;
  Mul 1233 422 1205; Mul 1172 365 1202; Mul 1349 15 1680; Add 1172 1172 1349; Mul 1349 16 1350;
  Mul 1634 367 1083; Sub 1349 1349 1634; Add 1172 1172 1349; Mul 1349 421 1172; Add 1233 1233 1349;
  Add 1633 1633 1233; Add 1621 1621 1633; Mul 1633 213 1621; Mul 1233 439 1633; Mul 1349 423 1373;
  Mul 1634 16 1478; Mul 1670 371 1083; Sub 1634 1634 1670; Mul 1670 15 1086; Mul 1163 318 1202;
  Add 1670 1670 1163; Sub 1634 1634 1670; Mul 1670 40 1634; Mul 1163 15 1478; Mul 1566 371 1202;
  Add 1163 1163 1566; Mul 1566 16 1086; Mul 1122 318 1083; Sub 1566 1566 1122; Add 1163 1163 1566;
  Mul 1566 42 1163; Add 1670 1670 1566; Add 1349 1349 1670; Mul 1670 372 1349; Mul 1566 424 1303;
  Add 1670 1670 1566; Mul 1566 40 1373; Mul 1122 14 1634; Mul 1533 18 1163; Add 1122 1122 1533;
  Add 1566 1566 1122; Mul 1122 429 1566; Mul 1533 16 1510; Mul 1312 377 1083].
Definition casadi_f0_625 : list instruction := [
  Sub 1533 1533 1312; Mul 1312 15 1130; Mul 1195 327 1202; Add 1312 1312 1195; Sub 1533 1533 1312;
  Mul 1312 428 1533; Add 1122 1122 1312; Add 1670 1670 1122; Mul 1122 43 1166; Mul 1312 431 1325;
  Sub 1122 1122 1312; Add 1670 1670 1122; Mul 1122 198 1303; Mul 1312 25 1510; Mul 1195 32 1130;
  Add 1312 1312 1195; Add 1122 1122 1312; Add 1122 1649 1122; Mul 1312 433 1303; Mul 1195 26 1533;
  Mul 1384 15 1510; Mul 1018 377 1202; Add 1384 1384 1018; Mul 1018 16 1130; Mul 1451 327 1083;
  Sub 1018 1018 1451; Add 1384 1384 1018; Mul 1018 28 1384; Add 1195 1195 1018; Add 1312 1312 1195;
  Add 1312 1122 1312; Mul 1195 430 1312; Mul 1195 438 1195; Mul 1018 198 1373; Mul 1451 25 1478;
  Mul 1287 32 1086; Add 1451 1451 1287; Add 1018 1018 1451; Add 1018 1694 1018; Mul 1451 433 1373;
  Mul 1287 26 1634; Mul 1317 28 1163; Add 1287 1287 1317; Add 1451 1451 1287; Add 1451 1018 1451;
  Mul 1287 435 1451; Add 1195 1195 1287; Sub 1195 1670 1195; Mul 1287 420 1195; Add 1317 1233 1287;
  Mul 1568 413 1303; Mul 1398 372 1602; Add 1568 1568 1398; Mul 1398 419 1533; Mul 1471 429 1132;
  Add 1398 1398 1471; Mul 1471 422 1384; Mul 1639 436 1172; Add 1471 1471 1639; Add 1398 1398 1471;
  Add 1568 1568 1398; Mul 1398 213 1568; Mul 1471 447 1398; Mul 1639 358 1349; Mul 1276 424 1325;
  Add 1639 1639 1276; Mul 1276 418 1566; Mul 1417 428 1166; Add 1276 1276 1417; Add 1639 1639 1276;
  Mul 1276 43 1533; Mul 1417 431 1303; Sub 1276 1276 1417; Sub 1639 1639 1276; Mul 1276 198 1325;
  Mul 1417 25 1693; Mul 1654 32 1139; Add 1417 1417 1654; Add 1276 1276 1417; Add 1276 1667 1276;
  Mul 1417 433 1325; Mul 1654 26 1166; Mul 1279 28 1205; Add 1654 1654 1279; Add 1417 1417 1654;
  Add 1417 1276 1417; Mul 1654 430 1417; Mul 1279 438 1654; Mul 1624 446 1451; Add 1279 1279 1624;
  Sub 1279 1639 1279; Mul 1624 442 1279; Add 1049 1471 1624; Sub 1663 1317 1049; Mul 1074 455 1451;
  Mul 1488 450 1373; Mul 1582 25 1350; Mul 1134 32 1680; Sub 1582 1582 1134; Sub 1333 1333 1582;
  Mul 1582 369 1333; Add 1488 1488 1582; Mul 1582 453 1634; Mul 1134 32 1283; Mul 1350 198 1350;
  Sub 1134 1134 1350; Sub 1167 1167 1134; Mul 1134 16 1167; Mul 1350 452 1083; Sub 1134 1134 1350;
  Mul 1350 454 1202; Mul 1680 198 1680; Mul 1283 25 1283; Sub 1680 1680 1283; Sub 1171 1171 1680;
  Mul 1680 15 1171; Add 1350 1350 1680; Sub 1134 1134 1350; Mul 1350 425 1134; Add 1582 1582 1350;
  Mul 1350 456 1163; Mul 1680 452 1202; Mul 1167 15 1167; Add 1680 1680 1167; Mul 1171 16 1171;
  Mul 1167 454 1083; Sub 1171 1171 1167; Add 1680 1680 1171; Mul 1171 427 1680; Add 1350 1350 1171;
  Add 1582 1582 1350; Add 1488 1488 1582; Mul 1582 441 1276; Mul 1350 444 1568; Add 1582 1582 1350;
  Mul 1350 417 1122; Mul 1171 432 1621; Add 1350 1350 1171; Sub 1582 1582 1350; Add 1488 1488 1582;
  Mul 1582 213 1488; Mul 1582 430 1582; Mul 1350 438 1582; Add 1171 1074 1350; Mul 1167 450 1325;
  Mul 1283 358 1333; Add 1167 1167 1283; Mul 1283 453 1166; Mul 1189 418 1134].
Definition casadi_f0_626 : list instruction := [
  Add 1283 1283 1189; Mul 1205 456 1205; Mul 1189 421 1680; Add 1205 1205 1189; Add 1283 1283 1205;
  Add 1167 1167 1283; Mul 1283 459 1122; Mul 1205 413 1373; Mul 1602 369 1602; Add 1205 1205 1602;
  Mul 1602 419 1634; Mul 1132 425 1132; Add 1602 1602 1132; Mul 1163 422 1163; Mul 1172 427 1172;
  Add 1163 1163 1172; Add 1602 1602 1163; Add 1205 1205 1602; Mul 1602 432 1205; Add 1283 1283 1602;
  Mul 1602 441 1018; Mul 1163 437 1568; Add 1602 1602 1163; Sub 1283 1283 1602; Add 1167 1167 1283;
  Mul 1283 213 1167; Mul 1283 430 1283; Mul 1602 445 1283; Mul 1163 460 1417; Add 1172 1602 1163;
  Mul 1132 450 1303; Mul 1333 372 1333; Add 1132 1132 1333; Mul 1333 453 1533; Mul 1134 429 1134;
  Add 1333 1333 1134; Mul 1134 456 1384; Mul 1680 436 1680; Add 1134 1134 1680; Add 1333 1333 1134;
  Add 1132 1132 1333; Mul 1333 417 1018; Mul 1134 437 1621; Add 1333 1333 1134; Mul 1134 459 1276;
  Mul 1680 444 1205; Add 1134 1134 1680; Sub 1333 1333 1134; Add 1132 1132 1333; Mul 1333 213 1132;
  Mul 1333 430 1333; Mul 1134 434 1333; Mul 1680 463 1312; Add 1189 1134 1680; Add 1350 1350 1074;
  Add 1074 1189 1350; Add 1172 1172 1074; Sub 1179 1171 1172; Add 1163 1163 1602; Add 1680 1680 1134;
  Add 1171 1680 1171; Add 1163 1163 1171; Sub 1350 1350 1163; Add 1179 1179 1350; Add 1624 1624 1471;
  Add 1287 1287 1233; Sub 1233 1624 1287; Add 1179 1179 1233; Sub 1663 1663 1179; Add 1529 1529 1663;
  Add 1213 1213 1529; Add 1483 1483 1213; Add 1280 1280 1483; Mul 1280 0 1280; Mul 1483 235 1443;
  Add 1280 1280 1483; Mul 1653 261 1653; Mul 1483 262 1354; Add 1653 1653 1483; Mul 1285 315 1285;
  Mul 1483 316 1090; Add 1285 1285 1483; Mul 1296 369 1296; Mul 1483 370 1373; Add 1296 1296 1483;
  Mul 1297 371 1297; Mul 1483 375 1478; Add 1297 1297 1483; Add 1296 1296 1297; Mul 1349 369 1349;
  Mul 1297 424 1373; Add 1349 1349 1297; Mul 1566 425 1566; Mul 1297 428 1634; Add 1566 1566 1297;
  Add 1349 1349 1566; Add 1566 1296 1349; Sub 1297 1697 1417; Mul 1483 480 1297; Sub 1213 1528 1312;
  Mul 1179 1197 1213; Add 1233 1483 1179; Mul 1233 20 1233; Add 1566 1566 1233; Add 1233 1285 1566;
  Mul 1471 485 1697; Mul 1350 50 1417; Add 1471 1471 1350; Sub 1350 1159 1471; Mul 1134 487 1350;
  Mul 1602 485 1528; Mul 1657 50 1312; Add 1602 1602 1657; Sub 1657 1200 1602; Mul 1123 1286 1657;
  Add 1676 1134 1123; Mul 1676 37 1676; Add 1233 1233 1676; Add 1676 1653 1233; Mul 1685 493 1159;
  Mul 1173 83 1471; Add 1685 1685 1173; Sub 1173 1491 1685; Mul 1409 495 1173; Mul 1261 493 1200;
  Mul 1562 83 1602; Add 1261 1261 1562; Sub 1562 1558 1261; Mul 1102 1294 1562; Add 1380 1409 1102;
  Mul 1380 80 1380; Add 1676 1676 1380; Mul 1380 237 1399; Mul 1432 113 1432; Sub 1380 1380 1432;
  Sub 1432 1676 1380; Mul 1148 501 1558; Mul 1412 104 1261; Add 1148 1148 1412; Sub 1412 1140 1148;
  Mul 1452 1299 1412; Mul 1441 501 1491; Mul 1574 104 1685; Add 1441 1441 1574; Add 1574 1320 1441;
  Mul 1628 503 1574; Sub 1604 1452 1628; Mul 1604 100 1604; Add 1432 1432 1604].
Definition casadi_f0_627 : list instruction := [
  Mul 1432 508 1432; Mul 1604 216 1194; Mul 1613 219 1578; Sub 1604 1604 1613; Mul 1613 215 1021;
  Mul 1641 227 1144; Add 1613 1613 1641; Add 1604 1604 1613; Mul 1613 500 1604; Add 1432 1432 1613;
  Add 1613 1196 1639; Mul 1297 20 1297; Mul 1641 512 1297; Sub 1135 1456 1451; Mul 1468 511 1135;
  Add 1641 1641 1468; Sub 1613 1613 1641; Add 1641 1421 1613; Mul 1350 37 1350; Mul 1468 516 1350;
  Mul 1440 485 1456; Mul 1632 50 1451; Add 1440 1440 1632; Sub 1632 1609 1440; Mul 1494 514 1632;
  Add 1468 1468 1494; Sub 1641 1641 1468; Add 1468 1316 1641; Mul 1173 80 1173; Mul 1494 520 1173;
  Mul 1227 493 1609; Mul 1192 83 1440; Add 1227 1227 1192; Sub 1192 1295 1227; Mul 1699 518 1192;
  Add 1494 1494 1699; Sub 1468 1468 1494; Add 1494 1689 1468; Mul 1574 100 1574; Mul 1699 524 1574;
  Mul 1114 501 1295; Mul 1376 104 1227; Add 1114 1114 1376; Add 1376 1427 1114; Mul 1188 522 1376;
  Add 1699 1699 1188; Add 1494 1494 1699; Mul 1699 526 1494; Mul 1188 221 1399; Mul 1501 113 1501;
  Add 1188 1188 1501; Mul 1162 114 1162; Mul 1501 218 1291; Sub 1162 1162 1501; Add 1188 1188 1162;
  Mul 1162 216 1188; Mul 1501 525 1578; Sub 1162 1162 1501; Mul 1501 521 1162; Add 1699 1699 1501;
  Add 1501 1024 1670; Mul 1077 20 1213; Mul 1077 512 1077; Mul 1642 529 1135; Add 1077 1077 1642;
  Sub 1501 1501 1077; Add 1077 1108 1501; Mul 1642 37 1657; Mul 1642 516 1642; Mul 1470 531 1632;
  Add 1642 1642 1470; Sub 1077 1077 1642; Add 1642 1588 1077; Mul 1470 80 1562; Mul 1470 520 1470;
  Mul 1674 533 1192; Add 1470 1470 1674; Sub 1642 1642 1470; Add 1470 1244 1642; Mul 1674 100 1412;
  Mul 1674 524 1674; Mul 1539 535 1376; Sub 1674 1674 1539; Sub 1470 1470 1674; Mul 1674 536 1470;
  Mul 1539 215 1188; Mul 1444 525 1144; Add 1539 1539 1444; Mul 1444 534 1539; Add 1674 1674 1444;
  Add 1699 1699 1674; Sub 1432 1432 1699; Mul 1699 120 1441; Mul 1674 527 1320; Sub 1699 1699 1674;
  Mul 1674 539 1699; Mul 1444 120 1114; Mul 1608 527 1427; Sub 1444 1444 1608; Mul 1608 526 1444;
  Mul 1327 538 1162; Add 1608 1608 1327; Mul 1327 508 1699; Mul 1084 537 1604; Add 1327 1327 1084;
  Add 1608 1608 1327; Mul 1327 540 1188; Mul 1084 214 1578; Mul 1466 525 1084; Sub 1327 1327 1466;
  Sub 1608 1608 1327; Mul 1608 141 1608; Mul 1466 537 1608; Add 1674 1674 1466; Mul 1466 527 1140;
  Mul 1484 120 1148; Add 1466 1466 1484; Mul 1484 546 1466; Mul 1410 544 1188; Mul 1158 214 1144;
  Mul 1186 525 1158; Add 1410 1410 1186; Mul 1186 508 1466; Mul 1234 543 1604; Add 1186 1186 1234;
  Mul 1234 536 1444; Mul 1174 538 1539; Add 1234 1234 1174; Add 1186 1186 1234; Sub 1186 1410 1186;
  Mul 1186 141 1186; Mul 1234 543 1186; Add 1484 1484 1234; Sub 1674 1674 1484; Add 1432 1432 1674;
  Mul 1674 553 1165; Mul 1484 238 1479; Mul 1353 236 1353; Mul 1234 144 1578; Sub 1353 1353 1234;
  Add 1484 1484 1353; Mul 1353 224 1484; Mul 1234 542 1479; Add 1353 1353 1234; Mul 1479 144 1479;
  Mul 1234 549 1578; Sub 1479 1479 1234; Mul 1234 216 1479; Mul 1174 548 1578].
Definition casadi_f0_628 : list instruction := [
  Sub 1234 1234 1174; Add 1353 1353 1234; Mul 1234 1334 1320; Mul 1174 1336 1427; Add 1486 1234 1174;
  Mul 1486 212 1486; Sub 1486 1353 1486; Mul 1101 249 1486; Add 1109 1674 1101; Mul 1301 556 1030;
  Mul 1484 220 1484; Mul 1119 542 1119; Sub 1484 1484 1119; Mul 1479 215 1479; Mul 1119 548 1144;
  Add 1479 1479 1119; Sub 1484 1484 1479; Mul 1479 241 1140; Mul 1546 225 1546; Sub 1479 1479 1546;
  Sub 1479 1484 1479; Mul 1546 244 1479; Add 1119 1301 1546; Sub 1109 1109 1119; Mul 1119 242 1330;
  Mul 1106 223 1427; Sub 1119 1119 1106; Mul 1106 1342 1140; Sub 1234 1106 1234; Mul 1234 212 1234;
  Sub 1234 1234 1380; Mul 1332 249 1234; Mul 1424 551 1165; Add 1555 1332 1424; Mul 1168 560 1677;
  Mul 1565 213 1188; Mul 1605 243 1565; Add 1169 1168 1605; Sub 1555 1555 1169; Add 1555 1119 1555;
  Sub 1109 1109 1555; Sub 1555 1380 1353; Mul 1169 219 1555; Mul 1419 557 1194; Add 1169 1169 1419;
  Mul 1419 227 1484; Mul 1175 555 1021; Add 1419 1419 1175; Add 1169 1169 1419; Mul 1419 525 1689;
  Mul 1175 239 1188; Add 1419 1419 1175; Add 1169 1169 1419; Mul 1419 340 1140; Mul 1175 231 1021;
  Mul 1420 227 1320; Sub 1175 1175 1420; Mul 1420 219 1140; Mul 1556 225 1194; Add 1420 1420 1556;
  Sub 1175 1175 1420; Mul 1175 212 1175; Mul 1420 225 1175; Add 1419 1419 1420; Mul 1420 242 1194;
  Mul 1556 219 1427; Sub 1420 1420 1556; Mul 1556 231 1188; Mul 1460 525 1320; Sub 1556 1556 1460;
  Sub 1420 1420 1556; Sub 1420 1518 1420; Mul 1420 212 1420; Mul 1556 242 1420; Mul 1460 559 1427;
  Sub 1556 1556 1460; Add 1419 1419 1556; Sub 1169 1169 1419; Mul 1169 213 1169; Sub 1109 1109 1169;
  Mul 1419 567 1439; Mul 1556 260 1407; Mul 1460 263 1570; Mul 1606 127 1578; Sub 1460 1460 1606;
  Add 1556 1556 1460; Mul 1460 265 1556; Mul 1606 547 1407; Add 1460 1460 1606; Mul 1407 127 1407;
  Mul 1570 268 1570; Mul 1606 563 1578; Sub 1570 1570 1606; Add 1407 1407 1570; Mul 1570 216 1407;
  Mul 1606 562 1578; Sub 1570 1570 1606; Add 1460 1460 1570; Mul 1570 1138 1491; Mul 1606 1357 1295;
  Add 1362 1570 1606; Mul 1362 269 1362; Add 1362 1460 1362; Mul 1310 258 1362; Add 1319 1419 1310;
  Mul 1700 570 1053; Mul 1556 253 1556; Mul 1248 547 1248; Add 1556 1556 1248; Mul 1407 215 1407;
  Mul 1248 562 1144; Add 1407 1407 1248; Sub 1556 1556 1407; Mul 1354 135 1354; Sub 1556 1556 1354;
  Mul 1403 271 1403; Mul 1354 283 1558; Add 1403 1403 1354; Sub 1403 1556 1403; Mul 1354 279 1403;
  Add 1407 1700 1354; Sub 1319 1319 1407; Mul 1407 300 1295; Mul 1248 275 1683; Add 1507 1407 1248;
  Mul 1081 271 1540; Mul 1198 292 1558; Add 1550 1081 1198; Add 1507 1507 1550; Mul 1550 1366 1558;
  Add 1570 1570 1550; Mul 1570 269 1570; Add 1570 1653 1570; Mul 1364 258 1570; Mul 1386 565 1439;
  Add 1599 1364 1386; Mul 1268 574 1141; Mul 1682 213 1176; Mul 1543 284 1682; Add 1243 1268 1543;
  Sub 1599 1599 1243; Add 1507 1507 1599; Sub 1319 1319 1507; Mul 1507 571 1209; Add 1599 1460 1653;
  Mul 1243 255 1599; Sub 1507 1507 1243; Mul 1243 278 1556; Mul 1284 569 1564].
Definition casadi_f0_629 : list instruction := [
  Add 1243 1243 1284; Add 1507 1507 1243; Mul 1243 296 1316; Mul 1284 280 1176; Add 1243 1243 1284;
  Add 1507 1507 1243; Mul 1243 471 1558; Mul 1284 278 1491; Mul 1232 282 1564; Add 1284 1284 1232;
  Mul 1232 255 1558; Mul 1103 271 1209; Add 1232 1232 1103; Sub 1284 1284 1232; Sub 1284 1247 1284;
  Mul 1284 269 1284; Mul 1232 271 1284; Add 1243 1243 1232; Mul 1232 573 1295; Mul 1103 255 1295;
  Mul 1127 275 1209; Add 1103 1103 1127; Mul 1127 296 1491; Mul 1088 282 1176; Add 1127 1127 1088;
  Sub 1103 1103 1127; Sub 1103 1278 1103; Mul 1103 269 1103; Mul 1127 275 1103; Add 1232 1232 1127;
  Sub 1243 1243 1232; Add 1507 1507 1243; Mul 1507 213 1507; Sub 1319 1319 1507; Mul 1243 581 1093;
  Mul 1232 314 1346; Mul 1127 317 1130; Mul 1088 128 1578; Sub 1127 1127 1088; Add 1232 1232 1127;
  Mul 1127 319 1232; Mul 1088 561 1346; Add 1127 1127 1088; Mul 1346 128 1346; Mul 1088 322 1130;
  Mul 1448 577 1578; Sub 1088 1088 1448; Add 1346 1346 1088; Mul 1088 216 1346; Mul 1448 576 1578;
  Sub 1088 1088 1448; Add 1127 1127 1088; Mul 1088 1379 1159; Mul 1448 1381 1609; Add 1228 1088 1448;
  Mul 1228 323 1228; Add 1228 1127 1228; Mul 1660 312 1228; Add 1650 1243 1660; Mul 1190 584 1221;
  Mul 1232 304 1232; Mul 1453 561 1453; Add 1232 1232 1453; Mul 1346 215 1346; Mul 1453 576 1144;
  Add 1346 1346 1453; Sub 1232 1232 1346; Mul 1090 131 1090; Sub 1232 1232 1090; Mul 1091 325 1091;
  Mul 1090 337 1200; Add 1091 1091 1090; Sub 1091 1232 1091; Mul 1090 333 1091; Add 1346 1190 1090;
  Sub 1650 1650 1346; Mul 1346 354 1609; Mul 1453 329 1474; Add 1648 1346 1453; Mul 1548 325 1105;
  Mul 1481 346 1200; Add 1219 1548 1481; Add 1648 1648 1219; Mul 1219 1390 1200; Add 1088 1088 1219;
  Mul 1088 323 1088; Add 1088 1285 1088; Mul 1133 312 1088; Mul 1535 579 1093; Add 1224 1133 1535;
  Mul 1218 588 1406; Mul 1469 213 1684; Mul 1321 338 1469; Add 1258 1218 1321; Sub 1224 1224 1258;
  Add 1648 1648 1224; Sub 1650 1650 1648; Mul 1648 585 1240; Add 1224 1127 1285; Mul 1258 309 1224;
  Sub 1648 1648 1258; Mul 1258 332 1232; Mul 1541 583 1393; Add 1258 1258 1541; Add 1648 1648 1258;
  Mul 1258 349 1421; Mul 1541 334 1684; Add 1258 1258 1541; Add 1648 1648 1258; Mul 1258 473 1200;
  Mul 1541 332 1159; Mul 1595 336 1393; Add 1541 1541 1595; Mul 1595 309 1200; Mul 1256 325 1240;
  Add 1595 1595 1256; Sub 1541 1541 1595; Sub 1541 1170 1541; Mul 1541 323 1541; Mul 1595 325 1541;
  Add 1258 1258 1595; Mul 1595 587 1609; Mul 1256 309 1609; Mul 1652 329 1240; Add 1256 1256 1652;
  Mul 1652 349 1159; Mul 1594 336 1684; Add 1652 1652 1594; Sub 1256 1256 1652; Sub 1256 1646 1256;
  Mul 1256 323 1256; Mul 1652 329 1256; Add 1595 1595 1652; Sub 1258 1258 1595; Add 1648 1648 1258;
  Mul 1648 213 1648; Sub 1650 1650 1648; Mul 1258 594 1416; Mul 1595 368 1303; Mul 1652 39 1510;
  Mul 1594 373 1130; Add 1652 1652 1594; Add 1595 1595 1652; Mul 1652 372 1595; Mul 1594 575 1303;
  Add 1652 1652 1594; Mul 1594 39 1303; Mul 1037 376 1510; Add 1594 1594 1037].
Definition casadi_f0_630 : list instruction := [
  Mul 1037 377 1594; Mul 1510 590 1510; Add 1037 1037 1510; Add 1652 1652 1037; Mul 1037 1404 1697;
  Mul 1510 1405 1456; Add 1458 1037 1510; Mul 1458 378 1458; Add 1458 1652 1458; Mul 1603 366 1458;
  Add 1216 1258 1603; Mul 1363 597 1183; Mul 1595 358 1595; Mul 1343 575 1325; Add 1595 1595 1343;
  Mul 1594 364 1594; Mul 1693 590 1693; Add 1594 1594 1693; Add 1595 1595 1594; Mul 1478 69 1478;
  Add 1595 1595 1478; Mul 1097 381 1097; Mul 1478 392 1528; Add 1097 1097 1478; Sub 1097 1595 1097;
  Mul 1478 388 1097; Add 1594 1363 1478; Sub 1216 1216 1594; Mul 1594 409 1456; Mul 1693 384 1150;
  Add 1343 1594 1693; Mul 1022 381 1337; Mul 1413 401 1528; Add 1473 1022 1413; Add 1343 1343 1473;
  Mul 1473 1414 1528; Add 1037 1037 1473; Mul 1037 378 1037; Add 1037 1296 1037; Mul 1585 366 1037;
  Mul 1454 592 1416; Add 1096 1585 1454; Mul 1401 601 1143; Mul 1129 213 1394; Mul 1252 393 1129;
  Add 1348 1401 1252; Sub 1096 1096 1348; Add 1343 1343 1096; Sub 1216 1216 1343; Mul 1343 598 1263;
  Add 1096 1652 1296; Mul 1348 363 1096; Sub 1343 1343 1348; Mul 1348 387 1595; Mul 1365 596 1597;
  Add 1348 1348 1365; Add 1343 1343 1348; Mul 1348 405 1196; Mul 1365 389 1394; Add 1348 1348 1365;
  Add 1343 1343 1348; Mul 1348 475 1528; Mul 1365 387 1697; Mul 1438 391 1597; Add 1365 1365 1438;
  Mul 1438 363 1528; Mul 1695 381 1263; Add 1438 1438 1695; Sub 1365 1365 1438; Sub 1365 1226 1365;
  Mul 1365 378 1365; Mul 1438 381 1365; Add 1348 1348 1438; Mul 1438 600 1456; Mul 1695 363 1456;
  Mul 1511 384 1263; Add 1695 1695 1511; Mul 1511 405 1697; Mul 1627 391 1394; Add 1511 1511 1627;
  Sub 1695 1695 1511; Sub 1695 1547 1695; Mul 1695 378 1695; Mul 1511 384 1695; Add 1438 1438 1511;
  Sub 1348 1348 1438; Add 1343 1343 1348; Mul 1343 213 1343; Sub 1216 1216 1343; Mul 1348 607 1633;
  Mul 1438 423 1303; Mul 1511 40 1533; Mul 1627 42 1384; Add 1511 1511 1627; Add 1438 1438 1511;
  Mul 1511 372 1438; Mul 1627 589 1303; Add 1511 1511 1627; Mul 1627 40 1303; Mul 1149 14 1533;
  Mul 1384 18 1384; Add 1149 1149 1384; Add 1627 1627 1149; Mul 1149 429 1627; Mul 1533 603 1533;
  Add 1149 1149 1533; Add 1511 1511 1149; Mul 1149 1428 1417; Mul 1533 1264 1451; Add 1384 1149 1533;
  Mul 1384 430 1384; Add 1384 1511 1384; Mul 1433 420 1384; Add 1503 1348 1433; Mul 1017 610 1398;
  Mul 1438 358 1438; Mul 1575 589 1325; Add 1438 1438 1575; Mul 1627 418 1627; Mul 1166 603 1166;
  Add 1627 1627 1166; Add 1438 1438 1627; Mul 1634 43 1634; Mul 1627 431 1373; Sub 1634 1634 1627;
  Add 1438 1438 1634; Mul 1654 434 1654; Mul 1634 446 1312; Add 1654 1654 1634; Sub 1654 1438 1654;
  Mul 1634 442 1654; Add 1627 1017 1634; Sub 1503 1503 1627; Mul 1627 463 1451; Mul 1166 438 1333;
  Add 1575 1627 1166; Mul 1411 434 1582; Mul 1272 455 1312; Add 1493 1411 1272; Add 1575 1575 1493;
  Mul 1493 1437 1312; Add 1149 1149 1493; Mul 1149 430 1149; Add 1149 1349 1149; Mul 1289 420 1149;
  Mul 1151 605 1633; Add 1146 1289 1151; Mul 1051 614 1279; Mul 1229 213 1205].
Definition casadi_f0_631 : list instruction := [
  Mul 1577 447 1229; Add 1082 1051 1577; Sub 1146 1146 1082; Add 1575 1575 1146; Sub 1503 1503 1575;
  Mul 1575 13 1621; Add 1146 1511 1349; Mul 1082 417 1146; Sub 1575 1575 1082; Mul 1082 441 1438;
  Mul 1113 609 1568; Add 1082 1082 1113; Add 1575 1575 1082; Mul 1082 459 1639; Mul 1113 443 1205;
  Add 1082 1082 1113; Add 1575 1575 1082; Mul 1082 477 1312; Mul 1113 441 1417; Mul 1180 445 1568;
  Add 1113 1113 1180; Mul 1180 417 1312; Mul 1552 434 1621; Add 1180 1180 1552; Sub 1113 1113 1180;
  Sub 1113 1488 1113; Mul 1113 430 1113; Mul 1180 434 1113; Add 1082 1082 1180; Mul 1180 611 1451;
  Mul 1552 417 1451; Mul 1388 438 1621; Add 1552 1552 1388; Mul 1388 459 1417; Mul 1656 445 1205;
  Add 1388 1388 1656; Sub 1552 1552 1388; Sub 1552 1132 1552; Mul 1552 430 1552; Mul 1388 438 1552;
  Add 1180 1180 1388; Sub 1082 1082 1180; Add 1575 1575 1082; Mul 1575 213 1575; Sub 1503 1503 1575;
  Add 1216 1216 1503; Add 1650 1650 1216; Add 1319 1319 1650; Add 1109 1109 1319; Mul 1109 216 1109;
  Mul 1082 554 1578; Sub 1109 1109 1082; Mul 1082 242 1686; Mul 1180 230 1427; Sub 1082 1082 1180;
  Mul 1180 560 1495; Mul 1388 248 1565; Add 1656 1180 1388; Mul 1234 244 1234; Mul 1567 551 1030;
  Add 1335 1234 1567; Sub 1656 1656 1335; Sub 1656 1082 1656; Mul 1335 556 1165; Mul 1254 249 1479;
  Add 1079 1335 1254; Mul 1563 558 1030; Sub 1106 1106 1174; Mul 1106 212 1106; Add 1106 1555 1106;
  Mul 1174 244 1106; Add 1370 1563 1174; Sub 1079 1079 1370; Add 1656 1656 1079; Mul 1079 219 1484;
  Mul 1370 555 1194; Add 1079 1079 1370; Mul 1370 227 1353; Mul 1137 550 1021; Add 1370 1370 1137;
  Add 1079 1079 1370; Mul 1370 525 1244; Mul 1137 246 1188; Add 1370 1370 1137; Add 1079 1079 1370;
  Mul 1370 231 1175; Mul 1137 340 1320; Sub 1370 1370 1137; Mul 1137 525 1140; Mul 1690 225 1188;
  Add 1137 1137 1690; Mul 1690 242 1021; Mul 1610 227 1427; Sub 1690 1690 1610; Sub 1137 1137 1690;
  Add 1137 1206 1137; Mul 1137 212 1137; Mul 1690 242 1137; Mul 1610 616 1427; Sub 1690 1690 1610;
  Sub 1370 1370 1690; Add 1079 1079 1370; Mul 1079 213 1079; Add 1656 1656 1079; Mul 1370 570 1439;
  Mul 1690 258 1403; Add 1610 1370 1690; Mul 1583 572 1053; Add 1550 1550 1606; Mul 1550 269 1550;
  Sub 1550 1550 1599; Mul 1606 279 1550; Add 1442 1583 1606; Sub 1610 1610 1442; Mul 1442 297 1295;
  Mul 1549 275 1506; Add 1400 1442 1549; Mul 1477 282 1540; Mul 1445 292 1491; Add 1392 1477 1445;
  Add 1400 1400 1392; Mul 1392 574 1450; Mul 1347 276 1682; Add 1692 1392 1347; Mul 1570 279 1570;
  Mul 1415 565 1053; Add 1522 1570 1415; Sub 1692 1692 1522; Add 1400 1400 1692; Sub 1610 1610 1400;
  Mul 1400 255 1556; Mul 1692 569 1209; Add 1400 1400 1692; Mul 1692 278 1460; Mul 1522 564 1564;
  Add 1692 1692 1522; Add 1400 1400 1692; Mul 1692 296 1588; Mul 1522 266 1176; Add 1692 1692 1522;
  Add 1400 1400 1692; Mul 1692 617 1295; Mul 1522 296 1558; Mul 1467 271 1176; Add 1522 1522 1467;
  Mul 1467 278 1295; Mul 1517 275 1564; Add 1467 1467 1517; Sub 1522 1522 1467].
Definition casadi_f0_632 : list instruction := [
  Sub 1522 1217 1522; Mul 1522 269 1522; Mul 1467 275 1522; Add 1692 1692 1467; Mul 1467 471 1491;
  Mul 1517 282 1284; Add 1467 1467 1517; Sub 1692 1692 1467; Add 1400 1400 1692; Mul 1400 213 1400;
  Add 1610 1610 1400; Mul 1692 584 1093; Mul 1467 312 1091; Add 1517 1692 1467; Mul 1538 586 1221;
  Add 1219 1219 1448; Mul 1219 323 1219; Sub 1219 1219 1224; Mul 1448 333 1219; Add 1231 1538 1448;
  Sub 1517 1517 1231; Mul 1231 351 1609; Mul 1554 329 1164; Add 1277 1231 1554; Mul 1520 336 1105;
  Mul 1107 346 1159; Add 1638 1520 1107; Add 1277 1277 1638; Mul 1638 588 1611; Mul 1526 330 1469;
  Add 1505 1638 1526; Mul 1088 333 1088; Mul 1241 579 1221; Add 1601 1088 1241; Sub 1505 1505 1601;
  Add 1277 1277 1505; Sub 1517 1517 1277; Mul 1277 309 1232; Mul 1505 583 1240; Add 1277 1277 1505;
  Mul 1505 332 1127; Mul 1601 578 1393; Add 1505 1505 1601; Add 1277 1277 1505; Mul 1505 349 1108;
  Mul 1601 320 1684; Add 1505 1505 1601; Add 1277 1277 1505; Mul 1505 619 1609; Mul 1601 349 1200;
  Mul 1075 325 1684; Add 1601 1601 1075; Mul 1075 332 1609; Mul 1496 329 1393; Add 1075 1075 1496;
  Sub 1601 1601 1075; Sub 1601 1571 1601; Mul 1601 323 1601; Mul 1075 329 1601; Add 1505 1505 1075;
  Mul 1075 473 1159; Mul 1496 336 1541; Add 1075 1075 1496; Sub 1505 1505 1075; Add 1277 1277 1505;
  Mul 1277 213 1277; Add 1517 1517 1277; Mul 1505 597 1416; Mul 1075 366 1097; Add 1496 1505 1075;
  Mul 1104 599 1183; Add 1473 1473 1510; Mul 1473 378 1473; Sub 1473 1473 1096; Mul 1510 388 1473;
  Add 1282 1104 1510; Sub 1496 1496 1282; Mul 1282 406 1456; Mul 1242 384 1275; Add 1225 1282 1242;
  Mul 1675 391 1337; Mul 1318 401 1697; Add 1152 1675 1318; Add 1225 1225 1152; Mul 1152 601 1527;
  Mul 1402 385 1129; Add 1060 1152 1402; Mul 1037 388 1037; Mul 1110 592 1183; Add 1487 1037 1110;
  Sub 1060 1060 1487; Add 1225 1225 1060; Sub 1496 1496 1225; Mul 1225 363 1595; Mul 1060 596 1263;
  Add 1225 1225 1060; Mul 1060 387 1652; Mul 1487 591 1597; Add 1060 1060 1487; Add 1225 1225 1060;
  Mul 1060 405 1024; Mul 1487 374 1394; Add 1060 1060 1487; Add 1225 1225 1060; Mul 1060 621 1456;
  Mul 1487 405 1528; Mul 1459 381 1394; Add 1487 1487 1459; Mul 1459 387 1456; Mul 1215 384 1597;
  Add 1459 1459 1215; Sub 1487 1487 1459; Sub 1487 1199 1487; Mul 1487 378 1487; Mul 1459 384 1487;
  Add 1060 1060 1459; Mul 1459 475 1697; Mul 1215 391 1365; Add 1459 1459 1215; Sub 1060 1060 1459;
  Add 1225 1225 1060; Mul 1225 213 1225; Add 1496 1496 1225; Mul 1060 610 1633; Mul 1459 420 1654;
  Add 1215 1060 1459; Mul 1620 612 1398; Add 1493 1493 1533; Mul 1493 430 1493; Sub 1493 1493 1146;
  Mul 1533 442 1493; Add 1062 1620 1533; Sub 1215 1215 1062; Mul 1062 460 1451; Mul 1698 438 1283;
  Add 1461 1062 1698; Mul 1302 445 1582; Mul 1645 455 1417; Add 1292 1302 1645; Add 1461 1461 1292;
  Mul 1292 614 1195; Mul 1358 439 1229; Add 1191 1292 1358; Mul 1149 442 1149; Mul 1207 605 1398;
  Add 1586 1149 1207; Sub 1191 1191 1586; Add 1461 1461 1191; Sub 1215 1215 1461].
Definition casadi_f0_633 : list instruction := [
  Mul 1461 417 1438; Mul 1191 609 1621; Add 1461 1461 1191; Mul 1191 441 1511; Mul 1586 604 1568;
  Add 1191 1191 1586; Add 1461 1461 1191; Mul 1191 459 1670; Mul 1586 426 1205; Add 1191 1191 1586;
  Add 1461 1461 1191; Mul 1191 623 1451; Mul 1586 459 1312; Mul 1482 434 1205; Add 1586 1586 1482;
  Mul 1482 441 1451; Mul 1238 438 1568; Add 1482 1482 1238; Sub 1586 1586 1482; Sub 1586 1167 1586;
  Mul 1586 430 1586; Mul 1482 438 1586; Add 1191 1191 1482; Mul 1482 477 1417; Mul 1238 445 1113;
  Add 1482 1482 1238; Sub 1191 1191 1482; Add 1461 1461 1191; Mul 1461 213 1461; Add 1215 1215 1461;
  Add 1496 1496 1215; Add 1517 1517 1496; Add 1610 1610 1517; Add 1656 1656 1610; Mul 1656 215 1656;
  Mul 1191 613 1144; Add 1656 1656 1191; Sub 1109 1109 1656; Mul 1656 212 1165; Mul 1191 242 1656;
  Mul 1482 624 1427; Sub 1191 1191 1482; Mul 1482 212 1565; Mul 1238 231 1482; Mul 1515 626 1320;
  Sub 1238 1238 1515; Add 1238 1330 1238; Sub 1191 1191 1238; Mul 1238 213 1420; Add 1515 1191 1238;
  Mul 1305 269 1439; Mul 1025 275 1305; Mul 1161 629 1295; Add 1519 1025 1161; Mul 1125 631 1491;
  Mul 1089 269 1682; Mul 1475 282 1089; Add 1590 1125 1475; Add 1590 1683 1590; Sub 1519 1519 1590;
  Mul 1590 213 1103; Add 1464 1519 1590; Mul 1038 323 1093; Mul 1696 329 1038; Mul 1324 634 1609;
  Add 1142 1696 1324; Mul 1687 636 1159; Mul 1118 323 1469; Mul 1230 336 1118; Add 1323 1687 1230;
  Add 1323 1474 1323; Sub 1142 1142 1323; Mul 1323 213 1256; Add 1681 1142 1323; Mul 1223 378 1416;
  Mul 1523 384 1223; Mul 1368 639 1456; Add 1281 1523 1368; Mul 1374 641 1697; Mul 1499 378 1129;
  Mul 1121 391 1499; Add 1300 1374 1121; Add 1300 1150 1300; Sub 1281 1281 1300; Mul 1300 213 1695;
  Add 1112 1281 1300; Mul 1185 430 1633; Mul 1679 438 1185; Mul 1211 644 1451; Add 1497 1679 1211;
  Mul 1339 646 1417; Mul 1580 430 1229; Mul 1182 445 1580; Add 1047 1339 1182; Add 1047 1333 1047;
  Sub 1497 1497 1047; Mul 1047 213 1552; Add 1576 1497 1047; Add 1112 1112 1576; Add 1681 1681 1112;
  Add 1464 1464 1681; Add 1515 1515 1464; Mul 1515 540 1515; Mul 1537 628 1084; Sub 1515 1515 1537;
  Mul 1537 212 1030; Mul 1672 242 1537; Mul 1308 650 1427; Sub 1672 1672 1308; Mul 1308 626 1140;
  Mul 1111 225 1482; Add 1308 1308 1111; Add 1308 1686 1308; Sub 1672 1672 1308; Mul 1308 213 1137;
  Add 1111 1672 1308; Mul 1076 631 1558; Mul 1489 271 1089; Add 1251 1076 1489; Sub 1251 1506 1251;
  Mul 1116 269 1053; Mul 1341 275 1116; Mul 1032 655 1295; Add 1581 1341 1032; Add 1251 1251 1581;
  Mul 1581 213 1522; Sub 1329 1251 1581; Mul 1313 636 1200; Mul 1512 325 1118; Add 1436 1313 1512;
  Sub 1436 1164 1436; Mul 1311 323 1221; Mul 1426 329 1311; Mul 1659 659 1609; Add 1016 1426 1659;
  Add 1436 1436 1016; Mul 1016 213 1601; Sub 1691 1436 1016; Mul 1236 641 1528; Mul 1423 381 1499;
  Add 1429 1236 1423; Sub 1429 1275 1429; Mul 1126 378 1183; Mul 1668 384 1126; Mul 1545 663 1456;
  Add 1542 1668 1545; Add 1429 1429 1542; Mul 1542 213 1487; Sub 1671 1429 1542].
Definition casadi_f0_634 : list instruction := [
  Mul 1465 646 1312; Mul 1154 434 1580; Add 1643 1465 1154; Sub 1643 1283 1643; Mul 1239 430 1398;
  Mul 1391 438 1239; Mul 1326 667 1451; Add 1559 1391 1326; Add 1643 1643 1559; Mul 1559 213 1586;
  Sub 1551 1643 1559; Add 1671 1671 1551; Add 1691 1691 1671; Add 1329 1329 1691; Add 1111 1111 1329;
  Mul 1111 544 1111; Mul 1640 653 1158; Add 1111 1111 1640; Add 1515 1515 1111; Sub 1109 1109 1515;
  Add 1432 1432 1109; Mul 1432 1 1432; Mul 1109 509 1422; Add 1432 1432 1109; Add 1280 1280 1432;
  Mul 1432 602 1468; Mul 1109 216 1176; Mul 1515 296 1578; Sub 1109 1109 1515; Mul 1515 517 1109;
  Add 1432 1432 1515; Mul 1515 670 1642; Mul 1111 215 1176; Mul 1640 296 1144; Add 1111 1111 1640;
  Mul 1640 532 1111; Add 1515 1515 1640; Add 1432 1432 1515; Mul 1676 671 1676; Mul 1515 216 1209;
  Mul 1640 255 1578; Sub 1515 1515 1640; Mul 1640 215 1564; Mul 1618 278 1144; Add 1640 1640 1618;
  Add 1515 1515 1640; Mul 1640 492 1515; Add 1676 1676 1640; Sub 1432 1432 1676; Mul 1676 675 1441;
  Mul 1640 215 1247; Mul 1618 290 1144; Add 1640 1640 1618; Mul 1618 674 1176; Mul 1647 216 1055;
  Mul 1204 274 1578; Add 1647 1647 1204; Mul 1204 296 1647; Sub 1618 1618 1204; Mul 1204 676 1209;
  Mul 1147 215 1147; Mul 1156 270 1144; Add 1147 1147 1156; Mul 1367 216 1367; Mul 1156 281 1578;
  Add 1367 1367 1156; Sub 1147 1147 1367; Mul 1367 255 1147; Add 1204 1204 1367; Add 1618 1618 1204;
  Add 1640 1640 1618; Mul 1618 602 1114; Mul 1204 523 1109; Add 1618 1618 1204; Mul 1204 671 1441;
  Mul 1367 502 1515; Add 1204 1204 1367; Add 1618 1618 1204; Sub 1618 1640 1618; Mul 1618 672 1618;
  Mul 1204 502 1618; Add 1676 1676 1204; Mul 1204 679 1148; Mul 1247 216 1247; Mul 1367 290 1578;
  Sub 1247 1247 1367; Mul 1367 676 1564; Mul 1156 278 1147; Add 1367 1367 1156; Mul 1156 680 1176;
  Mul 1338 274 1144; Mul 1055 215 1055; Sub 1338 1338 1055; Mul 1055 296 1338; Add 1156 1156 1055;
  Add 1367 1367 1156; Sub 1247 1247 1367; Mul 1367 671 1148; Mul 1156 505 1515; Add 1367 1367 1156;
  Mul 1156 670 1114; Mul 1055 523 1111; Add 1156 1156 1055; Add 1367 1367 1156; Add 1367 1247 1367;
  Mul 1367 672 1367; Mul 1156 505 1367; Add 1204 1204 1156; Sub 1676 1676 1204; Add 1432 1432 1676;
  Mul 1464 674 1464; Mul 1676 633 1647; Sub 1464 1464 1676; Mul 1329 680 1329; Mul 1676 657 1338;
  Add 1329 1329 1676; Mul 1089 275 1089; Mul 1295 631 1295; Add 1676 1089 1295; Mul 1204 629 1491;
  Mul 1156 282 1305; Add 1055 1204 1156; Mul 1665 655 1558; Mul 1536 271 1116; Add 1688 1665 1536;
  Add 1295 1295 1089; Add 1089 1688 1295; Add 1055 1055 1089; Sub 1524 1676 1055; Add 1156 1156 1204;
  Add 1536 1536 1665; Add 1676 1536 1676; Add 1156 1156 1676; Sub 1295 1295 1156; Sub 1524 1524 1295;
  Mul 1118 329 1118; Mul 1609 636 1609; Add 1295 1118 1609; Mul 1665 634 1159; Mul 1204 336 1038;
  Add 1378 1665 1204; Mul 1094 659 1200; Mul 1480 325 1311; Add 1509 1094 1480; Add 1609 1609 1118;
  Add 1118 1509 1609; Add 1378 1378 1118; Sub 1572 1295 1378; Add 1204 1204 1665].
Definition casadi_f0_635 : list instruction := [
  Add 1480 1480 1094; Add 1295 1480 1295; Add 1204 1204 1295; Sub 1609 1609 1204; Sub 1572 1572 1609;
  Mul 1499 384 1499; Mul 1456 641 1456; Add 1609 1499 1456; Mul 1094 639 1697; Mul 1665 391 1223;
  Add 1315 1094 1665; Mul 1181 663 1528; Mul 1274 381 1126; Add 1457 1181 1274; Add 1456 1456 1499;
  Add 1499 1457 1456; Add 1315 1315 1499; Sub 1525 1609 1315; Add 1665 1665 1094; Add 1274 1274 1181;
  Add 1609 1274 1609; Add 1665 1665 1609; Sub 1456 1456 1665; Sub 1525 1525 1456; Mul 1580 438 1580;
  Mul 1456 646 1451; Add 1181 1580 1456; Mul 1094 644 1417; Mul 1042 445 1185; Add 1203 1094 1042;
  Mul 1666 667 1312; Mul 1425 434 1239; Add 1187 1666 1425; Add 1456 1456 1580; Add 1580 1187 1456;
  Add 1203 1203 1580; Sub 1584 1181 1203; Add 1042 1042 1094; Add 1425 1425 1666; Add 1181 1425 1181;
  Add 1042 1042 1181; Sub 1456 1456 1042; Sub 1584 1584 1456; Add 1525 1525 1584; Add 1572 1572 1525;
  Add 1524 1524 1572; Mul 1524 676 1524; Mul 1456 687 1147; Add 1666 1524 1456; Sub 1329 1329 1666;
  Add 1464 1464 1329; Mul 1610 215 1610; Mul 1329 552 1144; Add 1610 1610 1329; Mul 1319 216 1319;
  Mul 1329 568 1578; Sub 1319 1319 1329; Sub 1610 1610 1319; Add 1464 1464 1610; Add 1432 1432 1464;
  Mul 1432 2 1432; Mul 1464 649 1598; Add 1432 1432 1464; Add 1280 1280 1432; Mul 1233 677 1233;
  Mul 1432 216 1240; Mul 1464 309 1578; Sub 1432 1432 1464; Mul 1464 215 1393; Mul 1610 332 1144;
  Add 1464 1464 1610; Add 1432 1432 1464; Mul 1464 484 1432; Add 1233 1233 1464; Mul 1464 706 1641;
  Mul 1610 216 1684; Mul 1319 349 1578; Sub 1610 1610 1319; Mul 1319 513 1610; Add 1464 1464 1319;
  Mul 1319 712 1077; Mul 1329 215 1684; Mul 1666 349 1144; Add 1329 1329 1666; Mul 1666 530 1329;
  Add 1319 1319 1666; Add 1464 1464 1319; Sub 1233 1233 1464; Mul 1464 711 1685; Mul 1319 706 1227;
  Mul 1666 519 1610; Add 1319 1319 1666; Mul 1666 677 1685; Mul 1094 494 1432; Add 1666 1666 1094;
  Add 1319 1319 1666; Mul 1666 215 1170; Mul 1094 344 1144; Add 1666 1666 1094; Mul 1094 714 1684;
  Mul 1360 216 1383; Mul 1560 328 1578; Sub 1360 1360 1560; Mul 1560 349 1360; Add 1094 1094 1560;
  Mul 1560 716 1240; Mul 1617 216 1617; Mul 1557 335 1578; Sub 1617 1617 1557; Mul 1589 215 1589;
  Mul 1557 324 1144; Add 1589 1589 1557; Add 1617 1617 1589; Mul 1589 309 1617; Add 1560 1560 1589;
  Add 1094 1094 1560; Add 1666 1666 1094; Sub 1319 1319 1666; Mul 1319 156 1319; Mul 1094 494 1319;
  Add 1464 1464 1094; Mul 1094 719 1261; Mul 1560 716 1393; Mul 1589 332 1617; Add 1560 1560 1589;
  Mul 1589 718 1684; Mul 1383 215 1383; Mul 1557 328 1144; Add 1383 1383 1557; Mul 1557 349 1383;
  Add 1589 1589 1557; Add 1560 1560 1589; Mul 1170 216 1170; Mul 1589 344 1578; Sub 1170 1170 1589;
  Sub 1560 1560 1170; Mul 1170 677 1261; Mul 1589 497 1432; Add 1170 1170 1589; Mul 1589 712 1227;
  Mul 1557 519 1329; Add 1589 1589 1557; Add 1170 1170 1589; Sub 1170 1560 1170; Mul 1170 156 1170;
  Mul 1589 497 1170; Add 1094 1094 1589; Sub 1464 1464 1094; Add 1233 1233 1464].
Definition casadi_f0_636 : list instruction := [
  Mul 1572 716 1572; Mul 1464 694 1617; Add 1094 1572 1464; Mul 1691 718 1691; Mul 1589 661 1383;
  Add 1691 1691 1589; Sub 1094 1094 1691; Mul 1681 714 1681; Mul 1691 638 1360; Add 1681 1681 1691;
  Sub 1094 1094 1681; Mul 1650 216 1650; Mul 1681 582 1578; Sub 1650 1650 1681; Mul 1517 215 1517;
  Mul 1681 618 1144; Add 1517 1517 1681; Sub 1650 1650 1517; Add 1094 1094 1650; Add 1233 1233 1094;
  Mul 1233 3 1233; Mul 1094 681 1593; Add 1233 1233 1094; Add 1280 1280 1233; Mul 1233 715 1613;
  Mul 1094 327 1394; Mul 1650 405 1130; Add 1094 1094 1650; Mul 1650 318 1597; Mul 1517 387 1086;
  Add 1650 1650 1517; Sub 1094 1094 1650; Mul 1650 510 1094; Add 1233 1233 1650; Mul 1650 721 1501;
  Mul 1517 318 1263; Mul 1681 363 1086; Add 1517 1517 1681; Mul 1681 310 1394; Mul 1691 405 1139;
  Add 1681 1681 1691; Sub 1517 1517 1681; Mul 1681 528 1517; Add 1650 1650 1681; Add 1233 1233 1650;
  Mul 1650 722 1566; Mul 1681 310 1597; Mul 1691 387 1139; Add 1681 1681 1691; Mul 1691 327 1263;
  Mul 1589 363 1130; Add 1691 1691 1589; Sub 1681 1681 1691; Mul 1691 479 1681; Add 1650 1650 1691;
  Add 1233 1233 1650; Mul 1650 726 1471; Mul 1691 318 1199; Mul 1589 404 1086; Add 1691 1691 1589;
  Mul 1589 310 1226; Mul 1557 399 1139; Add 1589 1589 1557; Sub 1691 1691 1589; Mul 1589 725 1394;
  Mul 1557 327 1694; Mul 1208 383 1130; Add 1557 1557 1208; Mul 1208 318 1649; Mul 1257 379 1086;
  Add 1208 1208 1257; Sub 1557 1557 1208; Mul 1208 405 1557; Add 1589 1589 1208; Mul 1208 727 1263;
  Mul 1649 310 1649; Mul 1257 379 1139; Add 1649 1649 1257; Mul 1257 327 1667; Mul 1701 390 1130;
  Add 1257 1257 1701; Sub 1649 1649 1257; Mul 1257 363 1649; Add 1208 1208 1257; Sub 1589 1589 1208;
  Add 1691 1691 1589; Mul 1589 715 1440; Mul 1208 515 1094; Add 1589 1589 1208; Mul 1208 722 1471;
  Mul 1257 486 1681; Add 1208 1208 1257; Sub 1589 1589 1208; Sub 1589 1691 1589; Mul 1589 723 1589;
  Mul 1208 486 1589; Add 1650 1650 1208; Mul 1208 730 1602; Mul 1226 327 1226; Mul 1257 399 1130;
  Add 1226 1226 1257; Mul 1257 318 1547; Mul 1701 408 1086; Add 1257 1257 1701; Sub 1226 1226 1257;
  Mul 1257 727 1597; Mul 1701 387 1649; Add 1257 1257 1701; Mul 1701 731 1394; Mul 1667 318 1667;
  Mul 1658 390 1086; Add 1667 1667 1658; Mul 1694 310 1694; Mul 1658 383 1139; Add 1694 1694 1658;
  Sub 1667 1667 1694; Mul 1694 405 1667; Add 1701 1701 1694; Sub 1257 1257 1701; Add 1226 1226 1257;
  Mul 1257 722 1602; Mul 1701 489 1681; Add 1257 1257 1701; Mul 1701 721 1440; Mul 1694 515 1517;
  Add 1701 1701 1694; Sub 1257 1257 1701; Sub 1257 1226 1257; Mul 1257 723 1257; Mul 1701 489 1257;
  Add 1208 1208 1701; Sub 1650 1650 1208; Add 1233 1233 1650; Mul 1650 725 1112; Mul 1208 643 1557;
  Add 1650 1650 1208; Mul 1208 731 1671; Mul 1701 665 1667; Add 1208 1208 1701; Mul 1701 727 1525;
  Mul 1694 701 1649; Add 1658 1701 1694; Add 1208 1208 1658; Add 1650 1650 1208; Mul 1208 310 1496;
  Mul 1658 620 1139; Add 1208 1208 1658; Mul 1658 327 1216; Mul 1099 595 1130].
Definition casadi_f0_637 : list instruction := [
  Add 1658 1658 1099; Mul 1529 318 1529; Mul 1099 395 1086; Add 1622 1529 1099; Add 1658 1658 1622;
  Add 1208 1208 1658; Sub 1650 1650 1208; Add 1233 1233 1650; Mul 1650 4 1233; Mul 1208 720 1513;
  Add 1650 1650 1208; Add 1280 1280 1650; Mul 1650 728 1639; Mul 1208 372 1205; Mul 1658 459 1303;
  Add 1208 1208 1658; Mul 1658 369 1568; Mul 1622 441 1373; Add 1658 1658 1622; Sub 1208 1208 1658;
  Mul 1658 443 1208; Add 1650 1650 1658; Mul 1658 733 1670; Mul 1622 369 1621; Mul 1271 417 1373;
  Add 1622 1622 1271; Mul 1271 358 1205; Mul 1267 459 1325; Add 1271 1271 1267; Sub 1622 1622 1271;
  Mul 1271 426 1622; Add 1658 1658 1271; Add 1650 1650 1658; Mul 1658 734 1349; Mul 1271 358 1568;
  Mul 1267 441 1325; Add 1271 1271 1267; Mul 1267 372 1621; Mul 1359 417 1303; Add 1267 1267 1359;
  Sub 1271 1271 1267; Mul 1267 478 1271; Add 1658 1658 1267; Add 1650 1650 1658; Mul 1658 735 1417;
  Mul 1267 369 1167; Mul 1359 458 1373; Add 1267 1267 1359; Mul 1359 358 1488; Mul 1314 451 1325;
  Add 1359 1359 1314; Sub 1267 1267 1359; Mul 1359 736 1205; Mul 1314 372 1018; Mul 1434 437 1303;
  Add 1314 1314 1434; Mul 1434 369 1122; Mul 1270 432 1373; Add 1434 1434 1270; Sub 1314 1314 1434;
  Mul 1434 459 1314; Add 1359 1359 1434; Mul 1434 738 1621; Mul 1122 358 1122; Mul 1270 432 1325;
  Add 1122 1122 1270; Mul 1270 372 1276; Mul 1098 444 1303; Add 1270 1270 1098; Sub 1122 1122 1270;
  Mul 1270 417 1122; Add 1434 1434 1270; Sub 1359 1359 1434; Add 1267 1267 1359; Mul 1359 728 1451;
  Mul 1434 438 1208; Add 1359 1359 1434; Mul 1434 734 1417; Mul 1270 445 1271; Add 1434 1434 1270;
  Sub 1359 1359 1434; Sub 1267 1267 1359; Mul 1267 430 1267; Mul 1359 445 1267; Add 1658 1658 1359;
  Mul 1359 739 1312; Mul 1488 372 1488; Mul 1434 451 1303; Add 1488 1488 1434; Mul 1434 369 1132;
  Mul 1270 462 1373; Add 1434 1434 1270; Sub 1488 1488 1434; Mul 1434 738 1568; Mul 1270 441 1122;
  Add 1434 1434 1270; Mul 1270 741 1205; Mul 1276 369 1276; Mul 1098 444 1373; Add 1276 1276 1098;
  Mul 1018 358 1018; Mul 1098 437 1325; Add 1018 1018 1098; Sub 1276 1276 1018; Mul 1018 459 1276;
  Add 1270 1270 1018; Sub 1434 1434 1270; Add 1488 1488 1434; Mul 1434 734 1312; Mul 1270 434 1271;
  Add 1434 1434 1270; Mul 1270 733 1451; Mul 1018 438 1622; Add 1270 1270 1018; Sub 1434 1434 1270;
  Sub 1488 1488 1434; Mul 1488 430 1488; Mul 1434 434 1488; Add 1359 1359 1434; Sub 1658 1658 1359;
  Add 1650 1650 1658; Mul 1658 736 1576; Mul 1359 648 1314; Add 1658 1658 1359; Mul 1359 741 1551;
  Mul 1434 669 1276; Add 1359 1359 1434; Mul 1434 738 1584; Mul 1270 708 1122; Add 1018 1434 1270;
  Add 1359 1359 1018; Add 1658 1658 1359; Mul 1359 358 1215; Mul 1018 622 1325; Add 1359 1359 1018;
  Mul 1018 372 1503; Mul 1098 608 1303; Add 1018 1018 1098; Mul 1663 369 1663; Mul 1098 449 1373;
  Add 1587 1663 1098; Add 1018 1018 1587; Add 1359 1359 1018; Sub 1658 1658 1359; Add 1650 1650 1658;
  Mul 1658 5 1650; Mul 1359 732 1636; Add 1658 1658 1359; Add 1280 1280 1658].
Definition casadi_f0_638 : list instruction := [
  Mul 1658 286 1399; Mul 1359 212 1658; Mul 1359 107 1359; Mul 1018 745 1435; Mul 1587 737 1435;
  Mul 1369 9 1658; Add 1587 1587 1369; Mul 1369 743 1591; Mul 1177 286 1291; Mul 1504 8 1177;
  Add 1369 1369 1504; Sub 1587 1587 1369; Mul 1369 269 1587; Mul 1504 81 1369; Mul 1117 746 1631;
  Mul 1387 743 1435; Mul 1382 9 1177; Sub 1387 1387 1382; Mul 1658 8 1658; Mul 1382 737 1591;
  Sub 1658 1658 1382; Sub 1387 1387 1658; Mul 1658 53 1387; Add 1117 1117 1658; Mul 1658 66 1587;
  Mul 1382 742 1322; Sub 1658 1658 1382; Add 1117 1117 1658; Mul 1658 323 1117; Mul 1382 47 1658;
  Mul 1265 378 1117; Mul 1157 24 1265; Mul 1498 752 1356; Mul 1678 66 1387; Mul 1544 746 1322;
  Sub 1678 1678 1544; Mul 1544 742 1631; Mul 1587 53 1587; Add 1544 1544 1587; Sub 1678 1678 1544;
  Mul 1544 35 1678; Add 1498 1498 1544; Mul 1544 378 1498; Mul 1587 31 1544; Sub 1157 1157 1587;
  Mul 1587 753 1202; Mul 1372 15 1498; Add 1587 1587 1372; Mul 1372 16 1117; Mul 1344 747 1083;
  Sub 1372 1372 1344; Add 1587 1587 1372; Mul 1587 430 1587; Mul 1372 26 1587; Mul 1498 16 1498;
  Mul 1344 753 1083; Sub 1498 1498 1344; Mul 1344 747 1202; Mul 1117 15 1117; Add 1344 1344 1117;
  Sub 1498 1498 1344; Mul 1498 430 1498; Mul 1344 28 1498; Sub 1372 1372 1344; Mul 1344 16 1587;
  Mul 1117 755 1083; Sub 1344 1344 1117; Mul 1117 757 1202; Mul 1462 15 1498; Add 1117 1117 1462;
  Sub 1344 1344 1117; Mul 1117 25 1344; Mul 1462 16 1498; Mul 1418 757 1083; Sub 1462 1462 1418;
  Mul 1418 755 1202; Mul 1377 15 1587; Add 1418 1418 1377; Add 1462 1462 1418; Mul 1418 32 1462;
  Sub 1117 1117 1418; Add 1117 1372 1117; Add 1157 1157 1117; Mul 1117 19 1157; Mul 1418 751 1490;
  Sub 1117 1117 1418; Mul 1418 763 1356; Mul 1377 19 1678; Mul 1100 752 1490; Sub 1377 1377 1100;
  Mul 1100 378 1377; Mul 1048 31 1100; Mul 1521 380 1265; Sub 1048 1048 1521; Mul 1377 430 1377;
  Mul 1521 28 1377; Mul 1587 433 1587; Sub 1521 1521 1587; Mul 1587 16 1521; Mul 1371 764 1083;
  Sub 1587 1587 1371; Mul 1371 766 1202; Mul 1498 433 1498; Mul 1246 26 1377; Sub 1498 1498 1246;
  Mul 1246 15 1498; Add 1371 1371 1246; Add 1587 1587 1371; Mul 1371 32 1377; Mul 1246 198 1344;
  Sub 1371 1371 1246; Add 1587 1587 1371; Add 1048 1048 1587; Mul 1587 35 1048; Add 1418 1418 1587;
  Add 1117 1117 1418; Add 1265 1265 1344; Mul 1344 48 1265; Add 1418 1544 1462; Mul 1587 19 1418;
  Mul 1371 765 1490; Sub 1587 1587 1371; Mul 1371 768 1356; Add 1246 1100 1377; Mul 1702 35 1246;
  Add 1371 1371 1702; Sub 1587 1587 1371; Mul 1371 55 1587; Sub 1344 1344 1371; Add 1117 1117 1344;
  Add 1382 1382 1117; Mul 1117 66 1382; Mul 1344 749 1322; Sub 1117 1117 1344; Mul 1344 762 1631;
  Mul 1544 380 1544; Mul 1100 24 1100; Sub 1544 1544 1100; Mul 1498 16 1498; Mul 1083 766 1083;
  Sub 1498 1498 1083; Mul 1202 764 1202; Mul 1521 15 1521; Add 1202 1202 1521; Sub 1498 1498 1202;
  Mul 1462 198 1462; Mul 1377 25 1377; Sub 1462 1462 1377; Add 1498 1498 1462].
Definition casadi_f0_639 : list instruction := [
  Add 1544 1544 1498; Mul 1498 62 1587; Mul 1246 19 1246; Mul 1462 768 1490; Sub 1246 1246 1462;
  Mul 1462 765 1356; Mul 1418 35 1418; Add 1462 1462 1418; Add 1246 1246 1462; Mul 1462 48 1246;
  Sub 1498 1498 1462; Add 1498 1544 1498; Mul 1678 323 1678; Mul 1462 47 1678; Sub 1498 1498 1462;
  Mul 1462 53 1498; Add 1344 1344 1462; Add 1117 1117 1344; Mul 1344 86 1587; Sub 1117 1117 1344;
  Add 1504 1504 1117; Mul 1117 9 1504; Add 1018 1018 1117; Mul 1498 66 1498; Mul 1117 762 1322;
  Sub 1498 1498 1117; Mul 1117 749 1631; Mul 1382 53 1382; Add 1117 1117 1382; Sub 1498 1498 1117;
  Mul 1117 91 1587; Add 1498 1498 1117; Mul 1387 269 1387; Mul 1117 81 1387; Sub 1498 1498 1117;
  Mul 1117 8 1498; Mul 1382 758 1591; Sub 1117 1117 1382; Add 1018 1018 1117; Mul 1587 102 1587;
  Add 1117 1678 1246; Mul 1382 66 1117; Mul 1344 770 1322; Sub 1382 1382 1344; Mul 1344 772 1631;
  Add 1462 1658 1265; Mul 1418 53 1462; Add 1344 1344 1418; Add 1382 1382 1344; Add 1344 1387 1382;
  Mul 1418 8 1344; Mul 1377 773 1591; Sub 1418 1418 1377; Mul 1377 776 1435; Mul 1462 66 1462;
  Mul 1322 772 1322; Sub 1462 1462 1322; Mul 1631 770 1631; Mul 1117 53 1117; Add 1631 1631 1117;
  Sub 1462 1462 1631; Add 1631 1369 1462; Mul 1117 9 1631; Add 1377 1377 1117; Sub 1418 1418 1377;
  Mul 1418 108 1418; Sub 1587 1587 1418; Add 1018 1018 1587; Add 1359 1359 1018; Mul 1359 114 1359;
  Mul 1291 740 1291; Sub 1359 1359 1291; Mul 1399 774 1399; Mul 1504 8 1504; Mul 1291 745 1591;
  Sub 1504 1504 1291; Mul 1291 758 1435; Mul 1498 9 1498; Add 1291 1291 1498; Sub 1504 1504 1291;
  Mul 1435 773 1435; Mul 1344 9 1344; Add 1435 1435 1344; Mul 1631 8 1631; Mul 1591 776 1591;
  Sub 1631 1631 1591; Add 1435 1435 1631; Mul 1631 108 1435; Add 1504 1504 1631; Mul 1177 212 1177;
  Mul 1631 107 1177; Sub 1504 1504 1631; Mul 1504 113 1504; Add 1399 1399 1504; Sub 1359 1359 1399;
  Add 1280 1280 1359; Mul 1359 210 1280; Sub 1600 1600 1359; Div 1359 1625 92; Mul 1399 1069 1485;
  Sub 1359 1359 1399; Mul 1399 779 1359; Add 1605 1605 1168; Add 1424 1424 1332; Sub 1605 1605 1424;
  Add 1546 1546 1301; Add 1101 1101 1674; Sub 1546 1546 1101; Add 1119 1119 1546; Sub 1605 1605 1119;
  Add 1605 1605 1169; Add 1543 1543 1268; Add 1386 1386 1364; Sub 1543 1543 1386; Add 1198 1198 1081;
  Add 1248 1248 1407; Add 1198 1198 1248; Add 1354 1354 1700; Add 1310 1310 1419; Sub 1354 1354 1310;
  Add 1198 1198 1354; Sub 1543 1543 1198; Add 1543 1543 1507; Add 1321 1321 1218; Add 1535 1535 1133;
  Sub 1321 1321 1535; Add 1481 1481 1548; Add 1453 1453 1346; Add 1481 1481 1453; Add 1090 1090 1190;
  Add 1660 1660 1243; Sub 1090 1090 1660; Add 1481 1481 1090; Sub 1321 1321 1481; Add 1321 1321 1648;
  Add 1252 1252 1401; Add 1454 1454 1585; Sub 1252 1252 1454; Add 1413 1413 1022; Add 1693 1693 1594;
  Add 1413 1413 1693; Add 1478 1478 1363; Add 1603 1603 1258; Sub 1478 1478 1603; Add 1413 1413 1478;
  Sub 1252 1252 1413; Add 1252 1252 1343; Add 1577 1577 1051; Add 1151 1151 1289].
Definition casadi_f0_640 : list instruction := [
  Sub 1577 1577 1151; Add 1272 1272 1411; Add 1166 1166 1627; Add 1272 1272 1166; Add 1634 1634 1017;
  Add 1433 1433 1348; Sub 1634 1634 1433; Add 1272 1272 1634; Sub 1577 1577 1272; Add 1577 1577 1575;
  Add 1252 1252 1577; Add 1321 1321 1252; Add 1543 1543 1321; Add 1605 1605 1543; Mul 1605 216 1605;
  Mul 1575 780 1578; Sub 1605 1605 1575; Mul 1575 781 1144; Add 1174 1174 1563; Add 1254 1254 1335;
  Sub 1174 1174 1254; Sub 1082 1082 1174; Add 1567 1567 1234; Add 1388 1388 1180; Sub 1567 1567 1388;
  Add 1082 1082 1567; Sub 1082 1082 1079; Add 1415 1415 1570; Add 1347 1347 1392; Sub 1415 1415 1347;
  Add 1445 1445 1477; Add 1549 1549 1442; Add 1445 1445 1549; Add 1606 1606 1583; Add 1690 1690 1370;
  Sub 1606 1606 1690; Add 1445 1445 1606; Sub 1415 1415 1445; Sub 1415 1415 1400; Add 1241 1241 1088;
  Add 1526 1526 1638; Sub 1241 1241 1526; Add 1107 1107 1520; Add 1554 1554 1231; Add 1107 1107 1554;
  Add 1448 1448 1538; Add 1467 1467 1692; Sub 1448 1448 1467; Add 1107 1107 1448; Sub 1241 1241 1107;
  Sub 1241 1241 1277; Add 1110 1110 1037; Add 1402 1402 1152; Sub 1110 1110 1402; Add 1318 1318 1675;
  Add 1242 1242 1282; Add 1318 1318 1242; Add 1510 1510 1104; Add 1075 1075 1505; Sub 1510 1510 1075;
  Add 1318 1318 1510; Sub 1110 1110 1318; Sub 1110 1110 1225; Add 1207 1207 1149; Add 1358 1358 1292;
  Sub 1207 1207 1358; Add 1645 1645 1302; Add 1698 1698 1062; Add 1645 1645 1698; Add 1533 1533 1620;
  Add 1459 1459 1060; Sub 1533 1533 1459; Add 1645 1645 1533; Sub 1207 1207 1645; Sub 1207 1207 1461;
  Add 1110 1110 1207; Add 1241 1241 1110; Add 1415 1415 1241; Add 1082 1082 1415; Mul 1082 215 1082;
  Add 1575 1575 1082; Sub 1605 1605 1575; Sub 1191 1191 1238; Sub 1519 1519 1590; Sub 1142 1142 1323;
  Sub 1281 1281 1300; Sub 1497 1497 1047; Add 1281 1281 1497; Add 1142 1142 1281; Add 1519 1519 1142;
  Add 1191 1191 1519; Mul 1191 540 1191; Mul 1238 625 1084; Sub 1191 1191 1238; Mul 1238 651 1158;
  Sub 1672 1672 1308; Add 1251 1251 1581; Add 1436 1436 1016; Add 1429 1429 1542; Add 1643 1643 1559;
  Add 1429 1429 1643; Add 1436 1436 1429; Add 1251 1251 1436; Add 1672 1672 1251; Mul 1672 544 1672;
  Add 1238 1238 1672; Add 1191 1191 1238; Sub 1605 1605 1191; Mul 1605 0 1605; Mul 1191 23 1443;
  Add 1605 1605 1191; Mul 1470 508 1470; Mul 1191 534 1604; Add 1470 1470 1191; Add 1595 1595 1438;
  Mul 1297 482 1297; Mul 1213 511 1213; Add 1297 1297 1213; Sub 1595 1595 1297; Add 1232 1232 1595;
  Mul 1350 490 1350; Mul 1657 514 1657; Add 1350 1350 1657; Sub 1232 1232 1350; Add 1556 1556 1232;
  Mul 1173 498 1173; Mul 1562 518 1562; Add 1173 1173 1562; Sub 1556 1556 1173; Add 1484 1484 1556;
  Mul 1412 522 1412; Mul 1574 506 1574; Sub 1412 1412 1574; Sub 1484 1484 1412; Mul 1412 526 1484;
  Mul 1574 784 1162; Add 1412 1412 1574; Add 1652 1652 1511; Mul 1135 1304 1135; Add 1483 1483 1135;
  Mul 1483 20 1483; Add 1652 1652 1483; Add 1127 1127 1652; Mul 1632 1153 1632; Add 1134 1134 1632;
  Mul 1134 37 1134; Add 1127 1127 1134; Add 1460 1460 1127; Mul 1192 1212 1192].
Definition casadi_f0_641 : list instruction := [
  Add 1409 1409 1192; Mul 1409 80 1409; Add 1460 1460 1409; Add 1353 1353 1460; Mul 1376 1293 1376;
  Add 1628 1628 1376; Mul 1628 100 1628; Sub 1353 1353 1628; Mul 1353 536 1353; Mul 1628 496 1539;
  Add 1353 1353 1628; Add 1412 1412 1353; Sub 1470 1470 1412; Mul 1412 546 1444; Mul 1353 538 1186;
  Add 1412 1412 1353; Mul 1353 791 1699; Mul 1518 215 1518; Mul 1628 222 1144; Add 1518 1518 1628;
  Mul 1206 216 1206; Mul 1628 229 1578; Sub 1206 1206 1628; Sub 1518 1518 1206; Mul 1206 540 1021;
  Mul 1628 227 1084; Sub 1206 1206 1628; Mul 1628 544 1194; Mul 1409 219 1158; Add 1628 1628 1409;
  Sub 1206 1206 1628; Add 1518 1518 1206; Mul 1206 526 1466; Mul 1628 543 1162; Add 1206 1206 1628;
  Mul 1699 536 1699; Mul 1628 537 1539; Add 1699 1699 1628; Sub 1206 1206 1699; Sub 1206 1518 1206;
  Mul 1206 141 1206; Mul 1699 537 1206; Add 1353 1353 1699; Sub 1412 1412 1353; Add 1470 1470 1412;
  Mul 1412 556 1565; Mul 1479 560 1479; Add 1353 1412 1479; Sub 1345 1353 1345; Sub 1644 1245 1644;
  Sub 1034 1355 1034; Add 1644 1644 1034; Add 1479 1479 1412; Sub 1036 1036 1479; Add 1644 1644 1036;
  Sub 1345 1345 1644; Mul 1644 570 1682; Mul 1403 574 1403; Add 1036 1644 1403; Sub 1476 1036 1476;
  Sub 1351 1351 1616; Sub 1352 1352 1145; Add 1351 1351 1352; Add 1403 1403 1644; Sub 1662 1662 1403;
  Add 1351 1351 1662; Sub 1476 1476 1351; Mul 1351 584 1469; Mul 1091 588 1091; Add 1662 1351 1091;
  Sub 1573 1662 1573; Sub 1115 1115 1502; Sub 1673 1673 1253; Add 1115 1115 1673; Add 1091 1091 1351;
  Sub 1396 1396 1091; Add 1115 1115 1396; Sub 1573 1573 1115; Mul 1115 597 1129; Mul 1097 601 1097;
  Add 1396 1115 1097; Sub 1235 1396 1235; Sub 1431 1431 1255; Sub 1607 1607 1655; Add 1431 1431 1607;
  Add 1097 1097 1115; Sub 1340 1340 1097; Add 1431 1431 1340; Sub 1235 1235 1431; Mul 1431 610 1229;
  Mul 1654 614 1654; Add 1340 1431 1654; Sub 1317 1340 1317; Sub 1680 1680 1172; Sub 1189 1189 1163;
  Add 1680 1680 1189; Add 1654 1654 1431; Sub 1287 1287 1654; Add 1680 1680 1287; Sub 1317 1317 1680;
  Add 1235 1235 1317; Add 1573 1573 1235; Add 1476 1476 1573; Add 1345 1345 1476; Mul 1345 216 1345;
  Mul 1680 251 1578; Sub 1345 1345 1680; Mul 1680 230 1140; Mul 1686 225 1686; Add 1287 1680 1686;
  Mul 1330 231 1330; Mul 1431 223 1320; Sub 1330 1330 1431; Sub 1287 1287 1330; Mul 1486 560 1486;
  Mul 1431 553 1565; Add 1189 1486 1431; Mul 1495 244 1495; Mul 1030 248 1030; Add 1163 1495 1030;
  Sub 1189 1189 1163; Sub 1287 1287 1189; Mul 1565 558 1565; Mul 1106 560 1106; Add 1189 1565 1106;
  Mul 1165 243 1165; Mul 1677 249 1677; Add 1163 1165 1677; Sub 1189 1189 1163; Add 1287 1287 1189;
  Mul 1689 219 1689; Mul 1194 239 1194; Add 1689 1689 1194; Mul 1244 227 1244; Mul 1021 246 1021;
  Add 1244 1244 1021; Add 1689 1689 1244; Mul 1188 467 1188; Mul 1380 525 1380; Sub 1188 1188 1380;
  Add 1689 1689 1188; Mul 1420 231 1420; Mul 1188 559 1320; Sub 1420 1420 1188; Mul 1188 616 1140;
  Mul 1137 225 1137; Add 1188 1188 1137; Add 1420 1420 1188; Add 1689 1689 1420].
Definition casadi_f0_642 : list instruction := [
  Mul 1689 213 1689; Sub 1287 1287 1689; Mul 1420 572 1682; Mul 1550 574 1550; Add 1188 1420 1550;
  Mul 1439 284 1439; Mul 1141 258 1141; Add 1137 1439 1141; Sub 1188 1188 1137; Mul 1137 297 1558;
  Mul 1380 271 1506; Add 1244 1137 1380; Mul 1021 282 1683; Mul 1194 300 1491; Add 1189 1021 1194;
  Add 1244 1244 1189; Mul 1362 574 1362; Mul 1682 567 1682; Add 1189 1362 1682; Mul 1450 279 1450;
  Mul 1053 276 1053; Add 1163 1450 1053; Sub 1189 1189 1163; Add 1244 1244 1189; Sub 1188 1188 1244;
  Mul 1316 255 1316; Mul 1244 280 1209; Add 1316 1316 1244; Mul 1588 278 1588; Mul 1244 266 1564;
  Add 1588 1588 1244; Add 1316 1316 1588; Mul 1653 296 1653; Mul 1176 472 1176; Add 1653 1653 1176;
  Add 1316 1316 1653; Mul 1653 573 1491; Mul 1103 282 1103; Add 1653 1653 1103; Mul 1103 617 1558;
  Mul 1522 271 1522; Add 1103 1103 1522; Sub 1653 1653 1103; Add 1316 1316 1653; Mul 1316 213 1316;
  Sub 1188 1188 1316; Mul 1653 586 1469; Mul 1219 588 1219; Add 1103 1653 1219; Mul 1093 338 1093;
  Mul 1406 312 1406; Add 1522 1093 1406; Sub 1103 1103 1522; Mul 1522 351 1200; Mul 1176 325 1164;
  Add 1588 1522 1176; Mul 1244 336 1474; Mul 1189 354 1159; Add 1163 1244 1189; Add 1588 1588 1163;
  Mul 1228 588 1228; Mul 1469 581 1469; Add 1163 1228 1469; Mul 1611 333 1611; Mul 1221 330 1221;
  Add 1172 1611 1221; Sub 1163 1163 1172; Add 1588 1588 1163; Sub 1103 1103 1588; Mul 1421 309 1421;
  Mul 1588 334 1240; Add 1421 1421 1588; Mul 1108 332 1108; Mul 1588 320 1393; Add 1108 1108 1588;
  Add 1421 1421 1108; Mul 1285 349 1285; Mul 1684 474 1684; Add 1285 1285 1684; Add 1421 1421 1285;
  Mul 1285 587 1159; Mul 1256 336 1256; Add 1285 1285 1256; Mul 1256 619 1200; Mul 1601 325 1601;
  Add 1256 1256 1601; Sub 1285 1285 1256; Add 1421 1421 1285; Mul 1421 213 1421; Sub 1103 1103 1421;
  Mul 1285 599 1129; Mul 1473 601 1473; Add 1256 1285 1473; Mul 1416 393 1416; Mul 1143 366 1143;
  Add 1601 1416 1143; Sub 1256 1256 1601; Mul 1601 406 1528; Mul 1684 381 1275; Add 1108 1601 1684;
  Mul 1588 391 1150; Mul 1163 409 1697; Add 1172 1588 1163; Add 1108 1108 1172; Mul 1458 601 1458;
  Mul 1129 594 1129; Add 1172 1458 1129; Mul 1527 388 1527; Mul 1183 385 1183; Add 1115 1527 1183;
  Sub 1172 1172 1115; Add 1108 1108 1172; Sub 1256 1256 1108; Mul 1196 363 1196; Mul 1108 389 1263;
  Add 1196 1196 1108; Mul 1024 387 1024; Mul 1108 374 1597; Add 1024 1024 1108; Add 1196 1196 1024;
  Mul 1296 405 1296; Mul 1394 476 1394; Add 1296 1296 1394; Add 1196 1196 1296; Mul 1296 600 1697;
  Mul 1695 391 1695; Add 1296 1296 1695; Mul 1695 621 1528; Mul 1487 381 1487; Add 1695 1695 1487;
  Sub 1296 1296 1695; Add 1196 1196 1296; Mul 1196 213 1196; Sub 1256 1256 1196; Mul 1296 612 1229;
  Mul 1493 614 1493; Add 1695 1296 1493; Mul 1633 447 1633; Mul 1279 420 1279; Add 1487 1633 1279;
  Sub 1695 1695 1487; Mul 1487 460 1312; Mul 1394 434 1283; Add 1024 1487 1394; Mul 1108 445 1333;
  Mul 1172 463 1417; Add 1115 1108 1172; Add 1024 1024 1115; Mul 1384 614 1384].
Definition casadi_f0_643 : list instruction := [
  Mul 1229 607 1229; Add 1115 1384 1229; Mul 1195 442 1195; Mul 1398 439 1398; Add 1607 1195 1398;
  Sub 1115 1115 1607; Add 1024 1024 1115; Sub 1695 1695 1024; Mul 1024 417 1639; Mul 1115 443 1621;
  Add 1024 1024 1115; Mul 1115 441 1670; Mul 1607 426 1568; Add 1115 1115 1607; Add 1024 1024 1115;
  Mul 1115 459 1349; Mul 1205 478 1205; Add 1115 1115 1205; Add 1024 1024 1115; Mul 1115 611 1417;
  Mul 1552 445 1552; Add 1115 1115 1552; Mul 1552 623 1312; Mul 1586 434 1586; Add 1552 1552 1586;
  Sub 1115 1115 1552; Add 1024 1024 1115; Mul 1024 213 1024; Sub 1695 1695 1024; Add 1256 1256 1695;
  Add 1103 1103 1256; Add 1188 1188 1103; Add 1287 1287 1188; Mul 1287 215 1287; Mul 1115 470 1144;
  Add 1287 1287 1115; Sub 1345 1345 1287; Mul 1287 225 1656; Mul 1115 624 1140; Add 1552 1287 1115;
  Mul 1586 231 1537; Mul 1205 650 1320; Sub 1586 1586 1205; Sub 1552 1552 1586; Mul 1175 213 1175;
  Add 1205 1552 1175; Mul 1491 655 1491; Mul 1116 282 1116; Add 1607 1491 1116; Sub 1607 1540 1607;
  Mul 1305 271 1305; Mul 1558 629 1558; Add 1655 1305 1558; Add 1607 1607 1655; Mul 1284 213 1284;
  Sub 1655 1607 1284; Mul 1159 659 1159; Mul 1311 336 1311; Add 1255 1159 1311; Sub 1255 1105 1255;
  Mul 1038 325 1038; Mul 1200 634 1200; Add 1351 1038 1200; Add 1255 1255 1351; Mul 1541 213 1541;
  Sub 1351 1255 1541; Mul 1697 663 1697; Mul 1126 391 1126; Add 1673 1697 1126; Sub 1673 1337 1673;
  Mul 1223 381 1223; Mul 1528 639 1528; Add 1253 1223 1528; Add 1673 1673 1253; Mul 1365 213 1365;
  Sub 1253 1673 1365; Mul 1502 667 1417; Mul 1239 445 1239; Add 1644 1502 1239; Sub 1644 1582 1644;
  Mul 1185 434 1185; Mul 1352 644 1312; Add 1145 1185 1352; Add 1644 1644 1145; Mul 1113 213 1113;
  Sub 1145 1644 1113; Add 1253 1253 1145; Add 1351 1351 1253; Add 1655 1655 1351; Add 1205 1205 1655;
  Mul 1205 540 1205; Mul 1616 250 1084; Sub 1205 1205 1616; Mul 1537 225 1537; Mul 1140 650 1140;
  Add 1616 1537 1140; Mul 1656 231 1656; Mul 1320 624 1320; Sub 1656 1656 1320; Add 1140 1140 1537;
  Mul 1482 242 1482; Mul 1427 626 1427; Sub 1482 1482 1427; Add 1427 1140 1482; Add 1537 1656 1427;
  Sub 1537 1616 1537; Add 1616 1616 1482; Add 1656 1656 1616; Sub 1140 1140 1656; Sub 1537 1537 1140;
  Sub 1536 1536 1055; Sub 1688 1688 1156; Sub 1536 1536 1688; Sub 1480 1480 1378; Sub 1509 1509 1204;
  Sub 1480 1480 1509; Sub 1274 1274 1315; Sub 1457 1457 1665; Sub 1274 1274 1457; Sub 1425 1425 1203;
  Sub 1187 1187 1042; Sub 1425 1425 1187; Add 1274 1274 1425; Add 1480 1480 1274; Add 1536 1536 1480;
  Add 1537 1537 1536; Mul 1187 544 1537; Mul 1042 806 1158; Add 1187 1187 1042; Add 1205 1205 1187;
  Sub 1345 1345 1205; Add 1470 1470 1345; Mul 1470 216 1470; Mul 1345 652 1578; Sub 1470 1470 1345;
  Mul 1345 804 1144; Mul 1494 508 1494; Mul 1205 521 1604; Add 1494 1494 1205; Add 1179 1179 1135;
  Mul 1179 20 1179; Add 1096 1096 1146; Sub 1179 1179 1096; Sub 1224 1179 1224; Add 1123 1123 1632;
  Mul 1123 37 1123; Add 1224 1224 1123; Sub 1599 1224 1599; Add 1102 1102 1192].
Definition casadi_f0_644 : list instruction := [
  Mul 1102 80 1102; Add 1599 1599 1102; Add 1555 1555 1599; Sub 1452 1452 1376; Mul 1452 100 1452;
  Add 1555 1555 1452; Mul 1555 526 1555; Mul 1452 499 1162; Add 1555 1555 1452; Mul 1484 536 1484;
  Mul 1452 784 1539; Add 1484 1484 1452; Add 1555 1555 1484; Sub 1494 1494 1555; Mul 1466 791 1466;
  Mul 1206 543 1206; Add 1466 1466 1206; Mul 1444 539 1444; Mul 1206 538 1608; Add 1444 1444 1206;
  Sub 1466 1466 1444; Add 1494 1494 1466; Add 1686 1686 1680; Sub 1686 1686 1330; Add 1677 1677 1165;
  Add 1106 1106 1565; Sub 1677 1677 1106; Sub 1686 1686 1677; Add 1030 1030 1495; Add 1431 1431 1486;
  Sub 1030 1030 1431; Add 1686 1686 1030; Add 1686 1686 1689; Add 1053 1053 1450; Add 1682 1682 1362;
  Sub 1053 1053 1682; Add 1194 1194 1021; Add 1380 1380 1137; Add 1194 1194 1380; Add 1141 1141 1439;
  Add 1550 1550 1420; Sub 1141 1141 1550; Add 1194 1194 1141; Sub 1053 1053 1194; Add 1053 1053 1316;
  Add 1221 1221 1611; Add 1469 1469 1228; Sub 1221 1221 1469; Add 1189 1189 1244; Add 1176 1176 1522;
  Add 1189 1189 1176; Add 1406 1406 1093; Add 1219 1219 1653; Sub 1406 1406 1219; Add 1189 1189 1406;
  Sub 1221 1221 1189; Add 1221 1221 1421; Add 1183 1183 1527; Add 1129 1129 1458; Sub 1183 1183 1129;
  Add 1163 1163 1588; Add 1684 1684 1601; Add 1163 1163 1684; Add 1143 1143 1416; Add 1473 1473 1285;
  Sub 1143 1143 1473; Add 1163 1163 1143; Sub 1183 1183 1163; Add 1183 1183 1196; Add 1398 1398 1195;
  Add 1229 1229 1384; Sub 1398 1398 1229; Add 1172 1172 1108; Add 1394 1394 1487; Add 1172 1172 1394;
  Add 1279 1279 1633; Add 1493 1493 1296; Sub 1279 1279 1493; Add 1172 1172 1279; Sub 1398 1398 1172;
  Add 1398 1398 1024; Add 1183 1183 1398; Add 1221 1221 1183; Add 1053 1053 1221; Add 1686 1686 1053;
  Mul 1686 216 1686; Mul 1024 507 1578; Sub 1686 1686 1024; Add 1355 1355 1245; Sub 1479 1479 1120;
  Sub 1355 1355 1479; Sub 1124 1124 1353; Add 1355 1355 1124; Add 1087 1087 1019; Sub 1403 1403 1375;
  Sub 1087 1087 1403; Sub 1237 1237 1036; Add 1087 1087 1237; Add 1500 1500 1449; Sub 1091 1091 1447;
  Sub 1500 1500 1091; Sub 1664 1664 1662; Add 1500 1500 1664; Add 1193 1193 1579; Sub 1097 1097 1455;
  Sub 1193 1193 1097; Sub 1389 1389 1396; Add 1193 1193 1389; Add 1074 1074 1171; Sub 1654 1654 1624;
  Sub 1074 1074 1654; Sub 1049 1049 1340; Add 1074 1074 1049; Add 1193 1193 1074; Add 1500 1500 1193;
  Add 1087 1087 1500; Add 1355 1355 1087; Mul 1355 215 1355; Mul 1049 226 1144; Add 1355 1355 1049;
  Sub 1686 1686 1355; Sub 1616 1616 1427; Sub 1676 1676 1089; Sub 1295 1295 1118; Sub 1609 1609 1499;
  Sub 1181 1181 1580; Add 1609 1609 1181; Add 1295 1295 1609; Add 1676 1676 1295; Add 1616 1616 1676;
  Mul 1580 540 1616; Mul 1499 805 1084; Sub 1580 1580 1499; Add 1115 1115 1287; Sub 1586 1586 1115;
  Sub 1115 1586 1175; Add 1116 1116 1491; Add 1558 1558 1305; Add 1540 1540 1558; Sub 1116 1116 1540;
  Add 1540 1116 1284; Add 1311 1311 1159; Add 1200 1200 1038; Add 1105 1105 1200; Sub 1311 1311 1105;
  Add 1105 1311 1541; Add 1126 1126 1697; Add 1528 1528 1223; Add 1337 1337 1528].
Definition casadi_f0_645 : list instruction := [
  Sub 1126 1126 1337; Add 1337 1126 1365; Add 1239 1239 1502; Add 1352 1352 1185; Add 1582 1582 1352;
  Sub 1239 1239 1582; Add 1582 1239 1113; Add 1337 1337 1582; Add 1105 1105 1337; Add 1540 1540 1105;
  Add 1115 1115 1540; Mul 1115 544 1115; Mul 1352 693 1158; Add 1115 1115 1352; Add 1580 1580 1115;
  Sub 1686 1686 1580; Add 1494 1494 1686; Mul 1494 215 1494; Add 1345 1345 1494; Sub 1470 1470 1345;
  Sub 1552 1552 1175; Add 1607 1607 1284; Add 1255 1255 1541; Add 1673 1673 1365; Add 1644 1644 1113;
  Add 1673 1673 1644; Add 1255 1255 1673; Add 1607 1607 1255; Add 1552 1552 1607; Mul 1552 216 1552;
  Mul 1345 305 1578; Sub 1552 1552 1345; Mul 1616 215 1616; Mul 1345 805 1144; Add 1616 1616 1345;
  Sub 1552 1552 1616; Add 1186 1186 1552; Mul 1186 540 1186; Mul 1552 307 1084; Sub 1186 1186 1552;
  Mul 1552 360 1158; Mul 1537 216 1537; Mul 1616 806 1578; Sub 1537 1537 1616; Add 1586 1586 1175;
  Sub 1116 1116 1284; Sub 1311 1311 1541; Sub 1126 1126 1365; Sub 1239 1239 1113; Add 1126 1126 1239;
  Add 1311 1311 1126; Add 1116 1116 1311; Add 1586 1586 1116; Mul 1586 215 1586; Mul 1113 700 1144;
  Add 1586 1586 1113; Sub 1537 1537 1586; Add 1608 1608 1537; Mul 1608 544 1608; Add 1552 1552 1608;
  Add 1186 1186 1552; Sub 1470 1470 1186; Mul 1470 1 1470; Mul 1186 469 1422; Add 1470 1470 1186;
  Add 1605 1605 1470; Mul 1470 602 1556; Mul 1186 783 1109; Add 1470 1470 1186; Mul 1186 670 1460;
  Mul 1552 488 1111; Add 1186 1186 1552; Add 1470 1470 1186; Mul 1186 671 1642; Mul 1552 532 1515;
  Add 1186 1186 1552; Sub 1470 1470 1186; Mul 1186 679 1114; Mul 1552 523 1367; Add 1186 1186 1552;
  Mul 1552 796 1441; Mul 1209 680 1209; Mul 1608 255 1338; Add 1209 1209 1608; Mul 1564 674 1564;
  Mul 1608 278 1647; Sub 1564 1564 1608; Sub 1209 1209 1564; Mul 1217 216 1217; Mul 1564 294 1578;
  Sub 1217 1217 1564; Mul 1278 215 1278; Mul 1564 299 1144; Add 1278 1278 1564; Add 1217 1217 1278;
  Sub 1209 1209 1217; Mul 1217 670 1441; Mul 1278 502 1111; Add 1217 1217 1278; Mul 1278 602 1148;
  Mul 1564 505 1109; Add 1278 1278 1564; Sub 1217 1217 1278; Sub 1217 1209 1217; Mul 1217 672 1217;
  Mul 1278 502 1217; Add 1552 1552 1278; Sub 1186 1186 1552; Add 1470 1470 1186; Mul 1186 674 1655;
  Mul 1552 794 1647; Sub 1186 1186 1552; Mul 1552 680 1536; Mul 1278 689 1338; Add 1564 1552 1278;
  Add 1489 1489 1076; Add 1032 1032 1341; Add 1506 1506 1032; Sub 1489 1489 1506; Add 1506 1489 1581;
  Add 1512 1512 1313; Add 1659 1659 1426; Add 1164 1164 1659; Sub 1512 1512 1164; Add 1164 1512 1016;
  Add 1423 1423 1236; Add 1545 1545 1668; Add 1275 1275 1545; Sub 1423 1423 1275; Add 1275 1423 1542;
  Add 1154 1154 1465; Add 1326 1326 1391; Add 1283 1283 1326; Sub 1154 1154 1283; Add 1283 1154 1559;
  Add 1275 1275 1283; Add 1164 1164 1275; Add 1506 1506 1164; Mul 1506 676 1506; Mul 1326 410 1147;
  Add 1506 1506 1326; Sub 1564 1564 1506; Add 1186 1186 1564; Mul 1564 215 1188; Mul 1506 461 1144;
  Add 1564 1564 1506; Mul 1476 216 1476; Mul 1506 277 1578; Sub 1476 1476 1506].
Definition casadi_f0_646 : list instruction := [
  Sub 1564 1564 1476; Add 1186 1186 1564; Add 1470 1470 1186; Mul 1470 216 1470; Mul 1186 707 1578;
  Sub 1470 1470 1186; Mul 1186 793 1144; Mul 1564 602 1599; Mul 1506 491 1109; Add 1564 1564 1506;
  Mul 1506 670 1556; Mul 1326 783 1111; Add 1506 1506 1326; Add 1564 1564 1506; Mul 1506 671 1468;
  Mul 1326 517 1515; Add 1506 1506 1326; Sub 1564 1564 1506; Mul 1506 796 1148; Mul 1326 505 1217;
  Add 1506 1506 1326; Mul 1326 675 1114; Mul 1391 523 1618; Add 1326 1326 1391; Sub 1506 1506 1326;
  Add 1564 1564 1506; Mul 1506 674 1676; Mul 1326 682 1647; Sub 1506 1506 1326; Mul 1326 680 1540;
  Mul 1391 808 1338; Add 1326 1326 1391; Add 1161 1161 1025; Sub 1683 1683 1161; Add 1475 1475 1125;
  Add 1683 1683 1475; Sub 1475 1683 1590; Add 1324 1324 1696; Sub 1474 1474 1324; Add 1230 1230 1687;
  Add 1474 1474 1230; Sub 1230 1474 1323; Add 1368 1368 1523; Sub 1150 1150 1368; Add 1121 1121 1374;
  Add 1150 1150 1121; Sub 1121 1150 1300; Add 1211 1211 1679; Sub 1333 1333 1211; Add 1182 1182 1339;
  Add 1333 1333 1182; Sub 1182 1333 1047; Add 1121 1121 1182; Add 1230 1230 1121; Add 1475 1475 1230;
  Mul 1475 676 1475; Mul 1339 301 1147; Add 1475 1475 1339; Sub 1326 1326 1475; Add 1326 1506 1326;
  Mul 1087 215 1087; Mul 1475 303 1144; Add 1339 1087 1475; Mul 1211 216 1053; Mul 1679 468 1578;
  Sub 1211 1211 1679; Sub 1339 1339 1211; Add 1326 1326 1339; Add 1564 1564 1326; Mul 1564 215 1564;
  Add 1186 1186 1564; Sub 1564 1470 1186; Mul 1676 215 1676; Mul 1326 682 1144; Add 1339 1676 1326;
  Mul 1211 216 1607; Mul 1679 792 1578; Sub 1211 1211 1679; Sub 1339 1339 1211; Add 1367 1367 1339;
  Mul 1339 540 1367; Mul 1211 233 1084; Sub 1339 1339 1211; Mul 1211 789 1158; Mul 1679 215 1116;
  Mul 1374 686 1144; Add 1679 1679 1374; Mul 1536 216 1536; Mul 1374 689 1578; Sub 1536 1536 1374;
  Sub 1679 1679 1536; Add 1618 1618 1679; Mul 1679 544 1618; Add 1211 1211 1679; Add 1339 1339 1211;
  Sub 1564 1564 1339; Mul 1564 2 1564; Mul 1339 285 1598; Add 1564 1564 1339; Add 1605 1605 1564;
  Mul 1564 677 1077; Mul 1339 530 1432; Add 1564 1564 1339; Mul 1339 706 1232; Mul 1211 782 1610;
  Add 1339 1339 1211; Mul 1211 712 1127; Mul 1679 481 1329; Add 1211 1211 1679; Add 1339 1339 1211;
  Sub 1564 1564 1339; Mul 1339 719 1227; Mul 1211 519 1170; Add 1339 1339 1211; Mul 1211 709 1685;
  Mul 1571 216 1571; Mul 1679 348 1578; Sub 1571 1571 1679; Mul 1646 215 1646; Mul 1679 353 1144;
  Add 1646 1646 1679; Add 1571 1571 1646; Mul 1393 714 1393; Mul 1646 332 1360; Add 1393 1393 1646;
  Mul 1240 718 1240; Mul 1646 309 1383; Add 1240 1240 1646; Sub 1393 1393 1240; Add 1571 1571 1393;
  Mul 1393 706 1261; Mul 1240 497 1610; Add 1393 1393 1240; Mul 1240 712 1685; Mul 1646 494 1329;
  Add 1240 1240 1646; Sub 1393 1393 1240; Sub 1393 1571 1393; Mul 1393 156 1393; Mul 1240 494 1393;
  Add 1211 1211 1240; Sub 1339 1339 1211; Add 1564 1564 1339; Mul 1339 716 1164; Mul 1211 403 1617;
  Add 1339 1339 1211; Mul 1211 718 1480; Mul 1240 696 1383; Add 1646 1211 1240].
Definition casadi_f0_647 : list instruction := [
  Sub 1339 1339 1646; Mul 1646 714 1351; Mul 1679 797 1360; Add 1646 1646 1679; Sub 1339 1339 1646;
  Mul 1573 216 1573; Mul 1646 331 1578; Sub 1573 1573 1646; Mul 1646 215 1103; Mul 1679 414 1144;
  Add 1646 1646 1679; Sub 1646 1573 1646; Add 1339 1339 1646; Add 1564 1564 1339; Mul 1564 216 1564;
  Mul 1339 790 1578; Sub 1564 1564 1339; Mul 1339 704 1144; Mul 1646 677 1641; Mul 1679 513 1432;
  Add 1646 1646 1679; Mul 1679 706 1224; Mul 1374 483 1610; Add 1679 1679 1374; Mul 1374 712 1232;
  Mul 1368 782 1329; Add 1374 1374 1368; Add 1679 1679 1374; Sub 1646 1646 1679; Mul 1679 709 1261;
  Mul 1374 497 1393; Add 1679 1679 1374; Mul 1374 711 1227; Mul 1368 519 1319; Add 1374 1374 1368;
  Sub 1679 1679 1374; Add 1646 1646 1679; Mul 1679 716 1230; Mul 1374 293 1617; Add 1679 1679 1374;
  Mul 1374 718 1105; Mul 1368 415 1383; Add 1374 1374 1368; Sub 1679 1679 1374; Mul 1374 714 1295;
  Mul 1368 685 1360; Add 1523 1374 1368; Sub 1679 1679 1523; Mul 1523 216 1221; Mul 1687 416 1578;
  Sub 1523 1523 1687; Mul 1500 215 1500; Mul 1687 357 1144; Add 1324 1500 1687; Sub 1523 1523 1324;
  Add 1679 1679 1523; Add 1646 1646 1679; Mul 1646 215 1646; Add 1339 1339 1646; Sub 1646 1564 1339;
  Mul 1679 216 1255; Mul 1523 795 1578; Sub 1679 1679 1523; Mul 1295 215 1295; Mul 1523 685 1144;
  Add 1324 1295 1523; Sub 1679 1679 1324; Add 1170 1170 1679; Mul 1679 540 1170; Mul 1324 697 1084;
  Sub 1679 1679 1324; Mul 1324 695 1158; Mul 1480 216 1480; Mul 1696 696 1578; Sub 1480 1480 1696;
  Mul 1696 215 1311; Mul 1125 448 1144; Add 1696 1696 1125; Sub 1696 1480 1696; Add 1319 1319 1696;
  Mul 1696 544 1319; Add 1324 1324 1696; Add 1679 1679 1324; Sub 1679 1646 1679; Mul 1679 3 1679;
  Mul 1324 691 1593; Add 1679 1679 1324; Add 1605 1605 1679; Mul 1679 715 1595; Mul 1324 606 1094;
  Add 1679 1679 1324; Mul 1324 721 1652; Mul 1696 786 1517; Add 1324 1324 1696; Add 1679 1679 1324;
  Mul 1324 722 1501; Mul 1696 528 1681; Add 1324 1324 1696; Add 1679 1679 1324; Mul 1324 730 1440;
  Mul 1696 515 1257; Add 1324 1324 1696; Mul 1696 683 1471; Mul 1547 310 1547; Mul 1125 408 1139;
  Add 1547 1547 1125; Mul 1199 327 1199; Mul 1125 404 1130; Add 1199 1199 1125; Sub 1547 1547 1199;
  Mul 1263 731 1263; Mul 1199 363 1667; Add 1263 1263 1199; Mul 1597 725 1597; Mul 1199 387 1557;
  Add 1597 1597 1199; Sub 1263 1263 1597; Add 1547 1547 1263; Mul 1263 721 1471; Mul 1597 486 1517;
  Add 1263 1263 1597; Mul 1597 715 1602; Mul 1199 489 1094; Add 1597 1597 1199; Sub 1263 1263 1597;
  Sub 1263 1547 1263; Mul 1263 723 1263; Mul 1597 486 1263; Add 1696 1696 1597; Sub 1324 1324 1696;
  Add 1679 1679 1324; Mul 1324 725 1253; Mul 1696 800 1557; Add 1324 1324 1696; Mul 1696 731 1274;
  Mul 1597 703 1667; Add 1199 1696 1597; Mul 1125 727 1275; Mul 1161 306 1649; Add 1125 1125 1161;
  Add 1199 1199 1125; Add 1324 1324 1199; Mul 1199 310 1256; Mul 1125 361 1139; Add 1199 1199 1125;
  Mul 1235 327 1235; Mul 1125 386 1130; Add 1161 1235 1125; Mul 1025 318 1252].
Definition casadi_f0_648 : list instruction := [
  Mul 1391 59 1086; Add 1025 1025 1391; Add 1161 1161 1025; Add 1199 1199 1161; Sub 1324 1324 1199;
  Add 1679 1679 1324; Mul 1324 216 1679; Mul 1199 690 1578; Sub 1324 1324 1199; Mul 1199 807 1144;
  Mul 1161 715 1179; Mul 1025 705 1094; Add 1161 1161 1025; Mul 1025 721 1595; Mul 1391 606 1517;
  Add 1025 1025 1391; Add 1161 1161 1025; Mul 1025 722 1613; Mul 1391 510 1681; Add 1025 1025 1391;
  Add 1161 1161 1025; Mul 1025 683 1602; Mul 1391 489 1263; Add 1025 1025 1391; Mul 1391 726 1440;
  Mul 1465 515 1589; Add 1391 1391 1465; Sub 1025 1025 1391; Add 1161 1161 1025; Mul 1025 725 1609;
  Mul 1391 692 1557; Add 1465 1025 1391; Mul 1545 731 1337; Mul 1668 465 1667; Add 1545 1545 1668;
  Mul 1668 727 1121; Mul 1236 785 1649; Add 1668 1668 1236; Add 1545 1545 1668; Add 1465 1465 1545;
  Mul 1193 310 1193; Mul 1545 412 1139; Add 1668 1193 1545; Mul 1236 327 1183; Mul 1659 407 1130;
  Add 1236 1236 1659; Mul 1659 318 1110; Mul 1426 580 1086; Add 1659 1659 1426; Add 1236 1236 1659;
  Add 1668 1668 1236; Sub 1465 1465 1668; Add 1161 1161 1465; Mul 1465 215 1161; Add 1199 1199 1465;
  Sub 1465 1324 1199; Mul 1609 310 1609; Mul 1668 692 1139; Add 1236 1609 1668; Mul 1659 327 1673;
  Mul 1426 798 1130; Add 1659 1659 1426; Mul 1426 318 1281; Mul 1313 640 1086; Add 1426 1426 1313;
  Add 1659 1659 1426; Add 1236 1236 1659; Sub 1257 1257 1236; Mul 1236 540 1257; Mul 1659 811 1084;
  Sub 1236 1236 1659; Mul 1659 813 1158; Mul 1426 310 1126; Mul 1313 464 1139; Add 1426 1426 1313;
  Mul 1274 327 1274; Mul 1313 703 1130; Add 1032 1274 1313; Mul 1341 318 1429; Mul 1076 662 1086;
  Add 1341 1341 1076; Add 1032 1032 1341; Add 1426 1426 1032; Sub 1589 1589 1426; Mul 1426 544 1589;
  Add 1659 1659 1426; Add 1236 1236 1659; Sub 1236 1465 1236; Mul 1236 4 1236; Mul 1659 812 1513;
  Add 1236 1236 1659; Add 1605 1605 1236; Mul 1236 728 1438; Mul 1659 609 1208; Add 1236 1236 1659;
  Mul 1659 733 1511; Mul 1426 604 1622; Add 1659 1659 1426; Add 1236 1236 1659; Mul 1659 734 1670;
  Mul 1426 426 1271; Add 1659 1659 1426; Add 1236 1236 1659; Mul 1659 739 1451; Mul 1426 438 1488;
  Add 1659 1659 1426; Mul 1426 816 1417; Mul 1132 358 1132; Mul 1032 462 1325; Add 1132 1132 1032;
  Mul 1167 372 1167; Mul 1032 458 1303; Add 1167 1167 1032; Sub 1132 1132 1167; Mul 1621 741 1621;
  Mul 1167 417 1276; Add 1621 1621 1167; Mul 1568 736 1568; Mul 1167 441 1314; Add 1568 1568 1167;
  Sub 1621 1621 1568; Add 1132 1132 1621; Mul 1621 733 1417; Mul 1568 445 1622; Add 1621 1621 1568;
  Mul 1568 728 1312; Mul 1167 434 1208; Add 1568 1568 1167; Sub 1621 1621 1568; Sub 1132 1132 1621;
  Mul 1132 430 1132; Mul 1621 445 1132; Add 1426 1426 1621; Sub 1659 1659 1426; Add 1236 1236 1659;
  Mul 1659 736 1145; Mul 1426 803 1314; Add 1659 1659 1426; Mul 1426 741 1425; Mul 1621 710 1276;
  Add 1568 1426 1621; Mul 1167 738 1283; Mul 1032 356 1122; Add 1167 1167 1032; Add 1568 1568 1167;
  Add 1659 1659 1568; Mul 1568 358 1695; Mul 1167 352 1325; Add 1568 1568 1167].
Definition casadi_f0_649 : list instruction := [
  Mul 1317 372 1317; Mul 1167 440 1303; Add 1032 1317 1167; Mul 1341 369 1577; Mul 1076 36 1373;
  Add 1341 1341 1076; Add 1032 1032 1341; Add 1568 1568 1032; Sub 1659 1659 1568; Add 1236 1236 1659;
  Mul 1659 216 1236; Mul 1568 814 1578; Sub 1659 1659 1568; Mul 1568 817 1144; Mul 1208 13 1208;
  Mul 1032 728 1146; Sub 1208 1208 1032; Mul 1032 733 1438; Mul 1622 609 1622; Add 1032 1032 1622;
  Add 1208 1208 1032; Mul 1032 734 1639; Mul 1271 443 1271; Add 1032 1032 1271; Add 1208 1208 1032;
  Mul 1032 816 1312; Mul 1271 434 1132; Add 1032 1032 1271; Mul 1271 735 1451; Mul 1622 438 1267;
  Add 1271 1271 1622; Sub 1032 1032 1271; Add 1208 1208 1032; Mul 1032 736 1181; Mul 1271 699 1314;
  Add 1622 1032 1271; Mul 1341 741 1582; Mul 1076 394 1276; Add 1341 1341 1076; Mul 1076 738 1182;
  Mul 1608 245 1122; Add 1076 1076 1608; Add 1341 1341 1076; Add 1622 1622 1341; Mul 1074 358 1074;
  Mul 1341 466 1325; Add 1076 1074 1341; Mul 1608 372 1398; Mul 1537 359 1303; Add 1608 1608 1537;
  Mul 1537 369 1207; Mul 1586 593 1373; Add 1537 1537 1586; Add 1608 1608 1537; Add 1076 1076 1608;
  Sub 1622 1622 1076; Add 1208 1208 1622; Mul 1622 215 1208; Add 1568 1568 1622; Sub 1622 1659 1568;
  Mul 1181 358 1181; Mul 1076 699 1325; Add 1608 1181 1076; Mul 1537 372 1644; Mul 1586 801 1303;
  Add 1537 1537 1586; Mul 1586 369 1497; Mul 1113 645 1373; Add 1586 1586 1113; Add 1537 1537 1586;
  Add 1608 1608 1537; Sub 1488 1488 1608; Mul 1608 540 1488; Mul 1537 820 1084; Sub 1608 1608 1537;
  Mul 1537 822 1158; Mul 1586 358 1239; Mul 1113 457 1325; Add 1586 1586 1113; Mul 1425 372 1425;
  Mul 1113 710 1303; Add 1365 1425 1113; Mul 1541 369 1643; Mul 1284 666 1373; Add 1541 1541 1284;
  Add 1365 1365 1541; Add 1586 1586 1365; Sub 1267 1267 1586; Mul 1586 544 1267; Add 1537 1537 1586;
  Add 1608 1608 1537; Sub 1608 1622 1608; Mul 1608 5 1608; Mul 1537 821 1636; Add 1608 1608 1537;
  Add 1605 1605 1608; Mul 1387 85 1387; Mul 1369 79 1369; Sub 1387 1387 1369; Mul 1678 54 1678;
  Mul 1658 61 1658; Sub 1678 1678 1658; Mul 1048 19 1048; Mul 1658 763 1490; Sub 1048 1048 1658;
  Mul 1658 751 1356; Mul 1157 35 1157; Add 1658 1658 1157; Sub 1048 1048 1658; Mul 1246 55 1246;
  Mul 1265 62 1265; Sub 1246 1246 1265; Add 1048 1048 1246; Add 1678 1678 1048; Mul 1382 86 1382;
  Mul 1462 91 1462; Sub 1382 1382 1462; Add 1382 1678 1382; Add 1387 1387 1382; Mul 1435 102 1435;
  Sub 1435 1387 1435; Mul 1177 101 1177; Add 1435 1435 1177; Add 1605 1605 1435; Mul 1435 777 1605;
  Sub 1399 1399 1435; Add 1600 1600 1399; Div 1399 1669 92; Mul 1435 1023 1485; Sub 1399 1399 1435;
  Mul 1435 767 1399; Mul 1519 674 1519; Mul 1177 630 1647; Sub 1519 1519 1177; Mul 1177 654 1338;
  Mul 1251 680 1251; Add 1177 1177 1251; Add 1456 1456 1524; Sub 1177 1177 1456; Add 1519 1519 1177;
  Mul 1177 615 1144; Mul 1415 215 1415; Add 1177 1177 1415; Mul 1543 216 1543; Mul 1415 7 1578;
  Sub 1543 1543 1415; Sub 1177 1177 1543; Add 1519 1519 1177; Mul 1519 0 1519].
Definition casadi_f0_650 : list instruction := [
  Mul 1177 771 1443; Add 1519 1519 1177; Mul 1177 748 1410; Mul 1543 216 1114; Mul 1415 523 1578;
  Sub 1543 1543 1415; Add 1543 1647 1543; Mul 1543 672 1543; Mul 1415 545 1543; Sub 1177 1177 1415;
  Mul 1415 216 1441; Mul 1456 502 1578; Sub 1415 1415 1456; Mul 1456 215 1148; Mul 1524 505 1144;
  Add 1456 1456 1524; Add 1415 1415 1456; Sub 1415 1415 1147; Mul 1415 672 1415; Mul 1456 504 1415;
  Mul 1524 750 1518; Add 1456 1456 1524; Mul 1524 215 1114; Mul 1251 523 1144; Add 1524 1524 1251;
  Sub 1524 1338 1524; Mul 1524 672 1524; Mul 1251 541 1524; Mul 1382 627 1327; Add 1251 1251 1382;
  Sub 1456 1456 1251; Add 1177 1177 1456; Mul 1468 215 1468; Mul 1456 517 1144; Add 1468 1468 1456;
  Mul 1642 216 1642; Mul 1456 532 1578; Sub 1642 1642 1456; Sub 1468 1468 1642; Mul 1642 627 1441;
  Mul 1456 502 1524; Add 1642 1642 1456; Mul 1456 748 1148; Mul 1251 505 1543; Sub 1456 1456 1251;
  Sub 1642 1642 1456; Add 1468 1468 1642; Mul 1468 508 1468; Mul 1642 744 1604; Add 1468 1468 1642;
  Mul 1642 215 1556; Mul 1456 783 1144; Add 1642 1642 1456; Mul 1460 216 1460; Mul 1456 488 1578;
  Sub 1460 1460 1456; Sub 1642 1642 1460; Mul 1460 748 1114; Mul 1543 523 1543; Sub 1460 1460 1543;
  Mul 1441 750 1441; Mul 1543 502 1415; Add 1441 1441 1543; Sub 1460 1460 1441; Add 1642 1642 1460;
  Mul 1642 536 1642; Mul 1460 824 1539; Add 1642 1642 1460; Sub 1468 1468 1642; Mul 1599 215 1599;
  Mul 1642 491 1144; Add 1599 1599 1642; Mul 1556 216 1556; Mul 1642 783 1578; Sub 1556 1556 1642;
  Sub 1599 1599 1556; Mul 1148 750 1148; Mul 1415 505 1415; Add 1148 1148 1415; Mul 1114 627 1114;
  Mul 1524 523 1524; Add 1114 1114 1524; Sub 1148 1148 1114; Add 1599 1599 1148; Mul 1599 526 1599;
  Mul 1148 825 1162; Add 1599 1599 1148; Sub 1468 1468 1599; Add 1177 1177 1468; Mul 1607 674 1607;
  Mul 1468 792 1647; Sub 1607 1607 1468; Add 1278 1278 1552; Mul 1552 298 1147; Sub 1489 1489 1581;
  Sub 1512 1512 1016; Sub 1423 1423 1542; Sub 1154 1154 1559; Add 1423 1423 1154; Add 1512 1512 1423;
  Add 1489 1489 1512; Mul 1559 676 1489; Add 1552 1552 1559; Sub 1278 1278 1552; Add 1607 1607 1278;
  Mul 1278 468 1144; Mul 1053 215 1053; Add 1278 1278 1053; Sub 1278 1278 1476; Add 1607 1607 1278;
  Mul 1607 216 1607; Mul 1278 823 1578; Sub 1607 1607 1278; Mul 1278 686 1338; Mul 1116 680 1116;
  Add 1278 1278 1116; Mul 1116 232 1147; Add 1683 1683 1590; Add 1474 1474 1323; Add 1150 1150 1300;
  Add 1333 1333 1047; Add 1150 1150 1333; Add 1474 1474 1150; Add 1683 1683 1474; Mul 1047 676 1683;
  Add 1116 1116 1047; Sub 1278 1278 1116; Add 1506 1506 1278; Add 1475 1475 1087; Mul 1188 216 1188;
  Mul 1087 461 1578; Sub 1188 1188 1087; Sub 1475 1475 1188; Add 1506 1506 1475; Mul 1506 215 1506;
  Mul 1475 668 1144; Add 1506 1506 1475; Sub 1607 1607 1506; Add 1326 1326 1676; Mul 1655 216 1655;
  Mul 1676 794 1578; Sub 1655 1655 1676; Sub 1326 1326 1655; Mul 1326 540 1326; Mul 1655 664 1084;
  Sub 1326 1326 1655; Mul 1655 808 1144; Mul 1540 215 1540; Add 1655 1655 1540].
Definition casadi_f0_651 : list instruction := [
  Sub 1655 1655 1536; Mul 1655 544 1655; Mul 1536 642 1158; Add 1655 1655 1536; Add 1326 1326 1655;
  Sub 1607 1607 1326; Add 1177 1177 1607; Mul 1177 1 1177; Mul 1607 760 1422; Add 1177 1177 1607;
  Add 1519 1519 1177; Mul 1367 674 1367; Mul 1177 233 1647; Sub 1367 1367 1177; Mul 1177 789 1338;
  Mul 1618 680 1618; Add 1177 1177 1618; Mul 1618 637 1147; Mul 1683 215 1683; Mul 1607 232 1144;
  Add 1683 1683 1607; Mul 1489 216 1489; Mul 1607 298 1578; Sub 1489 1489 1607; Sub 1683 1683 1489;
  Add 1217 1217 1683; Mul 1217 676 1217; Add 1618 1618 1217; Sub 1177 1177 1618; Add 1367 1367 1177;
  Sub 1186 1186 1470; Add 1367 1367 1186; Mul 1367 2 1367; Mul 1186 826 1598; Add 1367 1367 1186;
  Add 1519 1519 1367; Mul 1367 674 1170; Mul 1186 697 1647; Sub 1367 1367 1186; Mul 1186 695 1338;
  Mul 1470 680 1319; Add 1186 1186 1470; Mul 1470 647 1147; Mul 1177 216 1512; Mul 1618 411 1578;
  Sub 1177 1177 1618; Mul 1618 215 1474; Mul 1217 302 1144; Add 1618 1618 1217; Sub 1177 1177 1618;
  Add 1393 1393 1177; Mul 1177 676 1393; Add 1470 1470 1177; Sub 1186 1186 1470; Add 1367 1367 1186;
  Sub 1339 1339 1564; Add 1367 1367 1339; Mul 1367 3 1367; Mul 1339 347 1593; Add 1367 1367 1339;
  Add 1519 1519 1367; Mul 1367 674 1257; Mul 1339 811 1647; Sub 1367 1367 1339; Mul 1339 813 1338;
  Mul 1564 680 1589; Add 1339 1339 1564; Mul 1564 802 1147; Mul 1186 310 1150; Mul 1470 252 1139;
  Add 1186 1186 1470; Mul 1470 327 1423; Mul 1177 339 1130; Add 1470 1470 1177; Mul 1525 318 1525;
  Mul 1177 701 1086; Add 1618 1525 1177; Add 1470 1470 1618; Add 1186 1186 1470; Sub 1263 1263 1186;
  Mul 1186 676 1263; Add 1564 1564 1186; Sub 1339 1339 1564; Add 1367 1367 1339; Sub 1199 1199 1324;
  Add 1367 1367 1199; Mul 1367 4 1367; Mul 1199 698 1513; Add 1367 1367 1199; Add 1519 1519 1367;
  Mul 1367 674 1488; Mul 1199 820 1647; Sub 1367 1367 1199; Mul 1199 822 1338; Mul 1324 680 1267;
  Add 1199 1199 1324; Mul 1324 788 1147; Mul 1339 358 1333; Mul 1564 234 1325; Add 1339 1339 1564;
  Mul 1564 372 1154; Mul 1186 355 1303; Add 1564 1564 1186; Mul 1584 369 1584; Mul 1186 708 1373;
  Add 1470 1584 1186; Add 1564 1564 1470; Add 1339 1339 1564; Sub 1132 1132 1339; Mul 1339 676 1132;
  Add 1324 1324 1339; Sub 1199 1199 1324; Add 1367 1367 1199; Sub 1568 1568 1659; Add 1367 1367 1568;
  Mul 1367 5 1367; Mul 1568 809 1636; Add 1367 1367 1568; Add 1519 1519 1367; Sub 1387 1387 1519;
  Mul 1519 778 1387; Add 1435 1435 1519; Sub 1600 1600 1435; Div 1435 1028 92; Mul 1519 1516 1485;
  Sub 1435 1435 1519; Mul 1519 775 1435; Add 1464 1464 1572; Mul 1572 658 1383; Mul 1436 718 1436;
  Add 1572 1572 1436; Sub 1464 1464 1572; Mul 1572 635 1360; Mul 1142 714 1142; Add 1572 1572 1142;
  Sub 1464 1464 1572; Mul 1321 216 1321; Mul 1572 90 1578; Sub 1321 1321 1572; Mul 1572 566 1144;
  Mul 1241 215 1241; Add 1572 1572 1241; Sub 1321 1321 1572; Add 1464 1464 1321; Mul 1464 0 1464;
  Mul 1321 818 1443; Add 1464 1464 1321; Mul 1321 216 1227; Mul 1572 519 1578].
Definition casadi_f0_652 : list instruction := [
  Sub 1321 1321 1572; Sub 1321 1321 1360; Mul 1321 156 1321; Mul 1572 545 1321; Mul 1241 684 1410;
  Add 1572 1572 1241; Mul 1241 216 1685; Mul 1142 494 1578; Sub 1241 1241 1142; Mul 1142 215 1261;
  Mul 1436 497 1144; Add 1142 1142 1436; Add 1241 1241 1142; Sub 1241 1617 1241; Mul 1241 156 1241;
  Mul 1142 504 1241; Mul 1436 660 1518; Add 1142 1142 1436; Mul 1436 215 1227; Mul 1367 519 1144;
  Add 1436 1436 1367; Sub 1436 1436 1383; Mul 1436 156 1436; Mul 1367 541 1436; Mul 1568 827 1327;
  Add 1367 1367 1568; Sub 1142 1142 1367; Add 1572 1572 1142; Mul 1077 216 1077; Mul 1142 530 1578;
  Sub 1077 1077 1142; Mul 1641 215 1641; Mul 1142 513 1144; Add 1641 1641 1142; Sub 1077 1077 1641;
  Mul 1641 827 1685; Mul 1142 494 1436; Add 1641 1641 1142; Mul 1142 684 1261; Mul 1367 497 1321;
  Add 1142 1142 1367; Sub 1641 1641 1142; Add 1077 1077 1641; Mul 1641 508 1077; Mul 1142 656 1604;
  Add 1641 1641 1142; Mul 1127 216 1127; Mul 1142 481 1578; Sub 1127 1127 1142; Mul 1142 215 1232;
  Mul 1367 782 1144; Add 1142 1142 1367; Sub 1127 1127 1142; Mul 1142 684 1227; Mul 1367 519 1321;
  Add 1142 1142 1367; Mul 1685 660 1685; Mul 1367 494 1241; Add 1685 1685 1367; Sub 1142 1142 1685;
  Add 1127 1127 1142; Mul 1142 536 1127; Mul 1685 829 1539; Add 1142 1142 1685; Sub 1641 1641 1142;
  Mul 1232 216 1232; Mul 1142 782 1578; Sub 1232 1232 1142; Mul 1224 215 1224; Mul 1142 483 1144;
  Add 1224 1224 1142; Sub 1232 1232 1224; Mul 1261 660 1261; Mul 1224 497 1241; Add 1261 1261 1224;
  Mul 1227 827 1227; Mul 1224 519 1436; Add 1227 1227 1224; Sub 1261 1261 1227; Add 1232 1232 1261;
  Mul 1261 526 1232; Mul 1227 830 1162; Add 1261 1261 1227; Sub 1641 1641 1261; Add 1572 1572 1641;
  Mul 1641 411 1617; Mul 1512 716 1512; Add 1641 1641 1512; Add 1240 1240 1211; Sub 1641 1641 1240;
  Mul 1240 795 1360; Mul 1255 714 1255; Add 1240 1240 1255; Sub 1641 1641 1240; Mul 1240 416 1144;
  Mul 1221 215 1221; Add 1240 1240 1221; Sub 1573 1573 1240; Add 1641 1641 1573; Mul 1641 216 1641;
  Mul 1573 828 1578; Sub 1641 1641 1573; Mul 1573 302 1617; Mul 1474 716 1474; Add 1573 1573 1474;
  Mul 1474 448 1383; Mul 1311 718 1311; Add 1474 1474 1311; Sub 1573 1573 1474; Add 1368 1368 1374;
  Sub 1573 1573 1368; Mul 1103 216 1103; Mul 1368 414 1578; Sub 1103 1103 1368; Add 1687 1687 1500;
  Sub 1103 1103 1687; Add 1573 1573 1103; Mul 1573 215 1573; Mul 1103 832 1144; Add 1573 1573 1103;
  Sub 1103 1641 1573; Mul 1351 216 1351; Mul 1687 797 1578; Sub 1351 1351 1687; Add 1523 1523 1295;
  Sub 1351 1351 1523; Mul 1523 540 1351; Mul 1295 835 1084; Sub 1523 1523 1295; Mul 1295 415 1144;
  Mul 1105 215 1105; Add 1295 1295 1105; Sub 1480 1480 1295; Mul 1295 544 1480; Mul 1105 837 1158;
  Add 1295 1295 1105; Add 1523 1523 1295; Sub 1103 1103 1523; Add 1572 1572 1103; Mul 1572 1 1572;
  Mul 1103 632 1422; Add 1572 1572 1103; Add 1464 1464 1572; Mul 1321 678 1321; Mul 1572 684 1247;
  Add 1321 1321 1572; Mul 1436 673 1436; Mul 1572 827 1640; Add 1436 1436 1572].
Definition casadi_f0_653 : list instruction := [
  Mul 1241 799 1241; Mul 1572 660 1209; Add 1241 1241 1572; Add 1436 1436 1241; Add 1321 1321 1436;
  Mul 1232 602 1232; Mul 1436 830 1109; Add 1232 1232 1436; Mul 1127 670 1127; Mul 1436 829 1111;
  Add 1127 1127 1436; Mul 1077 671 1077; Mul 1436 656 1515; Add 1077 1077 1436; Sub 1127 1127 1077;
  Add 1232 1232 1127; Add 1321 1321 1232; Mul 1351 674 1351; Mul 1232 835 1647; Sub 1351 1351 1232;
  Mul 1480 680 1480; Mul 1232 837 1338; Add 1480 1480 1232; Mul 1164 216 1164; Mul 1232 403 1578;
  Sub 1164 1164 1232; Mul 1232 293 1144; Mul 1230 215 1230; Add 1232 1232 1230; Sub 1164 1164 1232;
  Mul 1164 676 1164; Mul 1232 839 1147; Add 1164 1164 1232; Sub 1480 1480 1164; Add 1351 1351 1480;
  Sub 1573 1573 1641; Add 1351 1351 1573; Add 1321 1321 1351; Mul 1321 2 1321; Mul 1351 834 1598;
  Add 1321 1321 1351; Add 1464 1464 1321; Mul 1321 647 1617; Mul 1393 716 1393; Add 1321 1321 1393;
  Mul 1393 695 1383; Mul 1319 718 1319; Add 1393 1393 1319; Sub 1321 1321 1393; Mul 1393 697 1360;
  Mul 1170 714 1170; Add 1393 1393 1170; Sub 1321 1321 1393; Add 1321 1321 1646; Mul 1321 3 1321;
  Mul 1646 836 1593; Add 1321 1321 1646; Add 1464 1464 1321; Mul 1321 802 1617; Mul 1646 716 1263;
  Add 1321 1321 1646; Mul 1646 813 1383; Mul 1393 718 1589; Add 1646 1646 1393; Sub 1321 1321 1646;
  Mul 1646 811 1360; Mul 1393 714 1257; Add 1646 1646 1393; Sub 1321 1321 1646; Add 1321 1321 1465;
  Mul 1321 4 1321; Mul 1465 702 1513; Add 1321 1321 1465; Add 1464 1464 1321; Mul 1321 788 1617;
  Mul 1465 716 1132; Add 1321 1321 1465; Mul 1465 822 1383; Mul 1646 718 1267; Add 1465 1465 1646;
  Sub 1321 1321 1465; Mul 1465 820 1360; Mul 1646 714 1488; Add 1465 1465 1646; Sub 1321 1321 1465;
  Add 1321 1321 1622; Mul 1321 5 1321; Mul 1622 810 1636; Add 1321 1321 1622; Add 1464 1464 1321;
  Add 1464 1464 1678; Mul 1678 769 1464; Sub 1519 1519 1678; Add 1600 1600 1519; Div 1519 1385 92;
  Mul 1678 1637 1485; Sub 1519 1519 1678; Mul 1678 815 1519; Mul 1321 640 1557; Mul 1281 725 1281;
  Add 1321 1321 1281; Mul 1281 662 1667; Mul 1429 731 1429; Add 1281 1281 1429; Add 1694 1694 1701;
  Add 1281 1281 1694; Add 1321 1321 1281; Mul 1281 580 1139; Mul 1110 310 1110; Add 1281 1281 1110;
  Mul 1110 59 1130; Mul 1252 327 1252; Add 1110 1110 1252; Add 1099 1099 1529; Add 1110 1110 1099;
  Add 1281 1281 1110; Sub 1321 1321 1281; Mul 1321 0 1321; Mul 1281 819 1443; Add 1321 1321 1281;
  Mul 1281 327 1440; Mul 1110 515 1130; Add 1281 1281 1110; Mul 1110 318 1602; Mul 1099 489 1086;
  Add 1110 1110 1099; Sub 1281 1281 1110; Sub 1281 1557 1281; Mul 1281 723 1281; Mul 1110 545 1281;
  Mul 1099 831 1410; Add 1110 1110 1099; Mul 1099 310 1602; Mul 1529 489 1139; Add 1099 1099 1529;
  Mul 1529 327 1471; Mul 1252 486 1130; Add 1529 1529 1252; Sub 1099 1099 1529; Sub 1099 1649 1099;
  Mul 1099 723 1099; Mul 1529 504 1099; Mul 1252 840 1518; Add 1529 1529 1252; Mul 1252 318 1471;
  Mul 1694 486 1086; Add 1252 1252 1694; Mul 1694 310 1440; Mul 1701 515 1139].
Definition casadi_f0_654 : list instruction := [
  Add 1694 1694 1701; Sub 1252 1252 1694; Sub 1252 1667 1252; Mul 1252 723 1252; Mul 1694 541 1252;
  Mul 1701 842 1327; Add 1694 1694 1701; Sub 1529 1529 1694; Add 1110 1110 1529; Mul 1529 842 1471;
  Mul 1694 486 1252; Add 1529 1529 1694; Mul 1694 831 1602; Mul 1701 489 1281; Add 1694 1694 1701;
  Sub 1529 1529 1694; Mul 1694 310 1613; Mul 1701 510 1139; Add 1694 1694 1701; Mul 1701 327 1501;
  Mul 1429 528 1130; Add 1701 1701 1429; Add 1694 1694 1701; Mul 1566 318 1566; Mul 1701 479 1086;
  Add 1566 1566 1701; Add 1694 1694 1566; Sub 1529 1529 1694; Mul 1694 508 1529; Mul 1566 841 1604;
  Add 1694 1694 1566; Mul 1566 831 1440; Mul 1701 515 1281; Add 1566 1566 1701; Mul 1471 840 1471;
  Mul 1701 486 1099; Add 1471 1471 1701; Sub 1566 1566 1471; Mul 1471 310 1595; Mul 1701 606 1139;
  Add 1471 1471 1701; Mul 1652 327 1652; Mul 1701 786 1130; Add 1652 1652 1701; Add 1471 1471 1652;
  Mul 1501 318 1501; Mul 1652 528 1086; Add 1501 1501 1652; Add 1471 1471 1501; Sub 1566 1566 1471;
  Mul 1471 536 1566; Mul 1501 844 1539; Add 1471 1471 1501; Sub 1694 1694 1471; Mul 1602 840 1602;
  Mul 1471 489 1099; Add 1602 1602 1471; Mul 1440 842 1440; Mul 1471 515 1252; Add 1440 1440 1471;
  Sub 1602 1602 1440; Mul 1179 310 1179; Mul 1440 705 1139; Add 1179 1179 1440; Mul 1595 327 1595;
  Mul 1440 606 1130; Add 1595 1595 1440; Add 1179 1179 1595; Mul 1613 318 1613; Mul 1595 510 1086;
  Add 1613 1613 1595; Add 1179 1179 1613; Sub 1602 1602 1179; Mul 1179 526 1602; Mul 1613 845 1162;
  Add 1179 1179 1613; Sub 1694 1694 1179; Add 1110 1110 1694; Add 1668 1668 1609; Mul 1609 800 1130;
  Mul 1253 327 1253; Add 1609 1609 1253; Mul 1253 643 1086; Mul 1112 318 1112; Add 1253 1253 1112;
  Add 1609 1609 1253; Add 1668 1668 1609; Mul 1609 540 1668; Mul 1253 843 1084; Sub 1609 1609 1253;
  Mul 1253 465 1139; Mul 1337 310 1337; Add 1253 1253 1337; Add 1313 1313 1274; Mul 1274 665 1086;
  Mul 1671 318 1671; Add 1274 1274 1671; Add 1313 1313 1274; Add 1253 1253 1313; Mul 1313 544 1253;
  Mul 1274 847 1158; Add 1313 1313 1274; Add 1609 1609 1313; Mul 1313 798 1557; Mul 1673 725 1673;
  Add 1313 1313 1673; Add 1597 1597 1696; Mul 1696 339 1649; Mul 1423 727 1423; Add 1696 1696 1423;
  Add 1597 1597 1696; Add 1313 1313 1597; Mul 1597 407 1139; Mul 1183 310 1183; Add 1597 1597 1183;
  Add 1125 1125 1235; Mul 1235 595 1086; Mul 1216 318 1216; Add 1235 1235 1216; Add 1125 1125 1235;
  Add 1597 1597 1125; Sub 1313 1313 1597; Mul 1313 216 1313; Mul 1597 848 1578; Sub 1313 1313 1597;
  Add 1391 1391 1025; Mul 1025 464 1667; Mul 1126 731 1126; Add 1025 1025 1126; Mul 1126 252 1649;
  Mul 1150 727 1150; Add 1126 1126 1150; Add 1025 1025 1126; Add 1391 1391 1025; Add 1545 1545 1193;
  Mul 1193 361 1130; Mul 1256 327 1256; Add 1193 1193 1256; Mul 1256 620 1086; Mul 1496 318 1496;
  Add 1256 1256 1496; Add 1193 1193 1256; Add 1545 1545 1193; Sub 1391 1391 1545; Mul 1391 215 1391;
  Mul 1545 850 1144; Add 1391 1391 1545; Sub 1545 1313 1391; Add 1609 1609 1545].
Definition casadi_f0_655 : list instruction := [
  Add 1110 1110 1609; Mul 1110 1 1110; Mul 1609 838 1422; Add 1110 1110 1609; Add 1321 1321 1110;
  Mul 1110 678 1281; Mul 1609 831 1247; Add 1110 1110 1609; Mul 1609 673 1252; Mul 1193 842 1640;
  Add 1609 1609 1193; Mul 1193 799 1099; Mul 1256 840 1209; Add 1193 1193 1256; Add 1609 1609 1193;
  Add 1110 1110 1609; Mul 1609 602 1602; Mul 1193 845 1109; Add 1609 1609 1193; Mul 1193 670 1566;
  Mul 1256 844 1111; Add 1193 1193 1256; Mul 1256 671 1529; Mul 1496 841 1515; Add 1256 1256 1496;
  Sub 1193 1193 1256; Add 1609 1609 1193; Add 1110 1110 1609; Mul 1609 785 1139; Mul 1121 310 1121;
  Add 1609 1609 1121; Mul 1121 306 1130; Mul 1275 327 1275; Add 1121 1121 1275; Add 1177 1177 1525;
  Add 1121 1121 1177; Add 1609 1609 1121; Mul 1121 676 1609; Mul 1177 853 1147; Add 1121 1121 1177;
  Mul 1177 680 1253; Mul 1525 847 1338; Add 1177 1177 1525; Sub 1121 1121 1177; Mul 1177 674 1668;
  Mul 1525 843 1647; Sub 1177 1177 1525; Sub 1121 1121 1177; Sub 1391 1391 1313; Add 1121 1121 1391;
  Add 1110 1110 1121; Mul 1110 2 1110; Mul 1121 846 1598; Add 1110 1110 1121; Add 1321 1321 1110;
  Mul 1281 717 1281; Mul 1110 831 1560; Add 1281 1281 1110; Mul 1099 787 1099; Mul 1110 840 1571;
  Add 1099 1099 1110; Mul 1252 713 1252; Mul 1110 842 1666; Add 1252 1252 1110; Sub 1099 1099 1252;
  Add 1281 1281 1099; Mul 1529 677 1529; Mul 1099 841 1432; Add 1529 1529 1099; Mul 1566 712 1566;
  Mul 1099 844 1329; Add 1566 1566 1099; Sub 1529 1529 1566; Mul 1602 706 1602; Mul 1566 845 1610;
  Add 1602 1602 1566; Sub 1529 1529 1602; Add 1281 1281 1529; Mul 1668 714 1668; Mul 1529 843 1360;
  Add 1668 1668 1529; Mul 1253 718 1253; Mul 1529 847 1383; Add 1253 1253 1529; Mul 1609 716 1609;
  Mul 1529 853 1617; Add 1609 1609 1529; Sub 1253 1253 1609; Add 1668 1668 1253; Add 1668 1668 1545;
  Add 1281 1281 1668; Mul 1281 3 1281; Mul 1668 854 1593; Add 1281 1281 1668; Add 1321 1321 1281;
  Mul 1281 811 1557; Mul 1257 725 1257; Add 1281 1281 1257; Mul 1257 813 1667; Mul 1589 731 1589;
  Add 1257 1257 1589; Mul 1589 802 1649; Mul 1263 727 1263; Add 1589 1589 1263; Add 1257 1257 1589;
  Add 1281 1281 1257; Mul 1257 807 1139; Mul 1161 310 1161; Add 1257 1257 1161; Mul 1161 690 1130;
  Mul 1679 327 1679; Add 1161 1161 1679; Mul 1679 720 1086; Mul 1233 318 1233; Add 1679 1679 1233;
  Add 1161 1161 1679; Add 1257 1257 1161; Sub 1281 1281 1257; Mul 1281 4 1281; Mul 1257 851 1513;
  Add 1281 1281 1257; Add 1321 1321 1281; Mul 1281 820 1557; Mul 1257 725 1488; Add 1281 1281 1257;
  Mul 1257 822 1667; Mul 1161 731 1267; Add 1257 1257 1161; Mul 1161 788 1649; Mul 1679 727 1132;
  Add 1161 1161 1679; Add 1257 1257 1161; Add 1281 1281 1257; Mul 1257 817 1139; Mul 1161 310 1208;
  Add 1257 1257 1161; Mul 1161 814 1130; Mul 1679 327 1236; Add 1161 1161 1679; Mul 1679 732 1086;
  Mul 1233 318 1650; Add 1679 1679 1233; Add 1161 1161 1679; Add 1257 1257 1161; Sub 1281 1281 1257;
  Mul 1281 5 1281; Mul 1257 852 1636; Add 1281 1281 1257; Add 1321 1321 1281].
Definition casadi_f0_656 : list instruction := [
  Sub 1544 1544 1321; Mul 1321 761 1544; Add 1678 1678 1321; Add 1600 1600 1678; Div 1678 1020 92;
  Mul 1321 1619 1485; Sub 1678 1678 1321; Mul 1321 833 1678; Mul 1281 645 1314; Mul 1497 736 1497;
  Add 1281 1281 1497; Mul 1497 666 1276; Mul 1643 741 1643; Add 1497 1497 1643; Add 1270 1270 1434;
  Add 1497 1497 1270; Add 1281 1281 1497; Mul 1497 593 1325; Mul 1207 358 1207; Add 1497 1497 1207;
  Mul 1207 36 1303; Mul 1577 372 1577; Add 1207 1207 1577; Add 1098 1098 1663; Add 1207 1207 1098;
  Add 1497 1497 1207; Sub 1281 1281 1497; Mul 1497 0 1281; Mul 1443 849 1443; Add 1497 1497 1443;
  Mul 1443 372 1451; Mul 1207 438 1303; Add 1443 1443 1207; Mul 1207 369 1312; Mul 1098 434 1373;
  Add 1207 1207 1098; Sub 1443 1443 1207; Sub 1443 1314 1443; Mul 1443 430 1443; Mul 1207 545 1443;
  Mul 1410 856 1410; Add 1207 1207 1410; Mul 1410 358 1312; Mul 1098 434 1325; Add 1410 1410 1098;
  Mul 1098 372 1417; Mul 1663 445 1303; Add 1098 1098 1663; Sub 1410 1410 1098; Sub 1410 1122 1410;
  Mul 1410 430 1410; Mul 1098 504 1410; Mul 1518 858 1518; Add 1098 1098 1518; Mul 1518 369 1417;
  Mul 1663 445 1373; Add 1518 1518 1663; Mul 1663 358 1451; Mul 1577 438 1325; Add 1663 1663 1577;
  Sub 1518 1518 1663; Sub 1518 1276 1518; Mul 1518 430 1518; Mul 1663 541 1518; Mul 1327 860 1327;
  Add 1663 1663 1327; Sub 1098 1098 1663; Add 1207 1207 1098; Mul 1098 860 1417; Mul 1663 445 1518;
  Add 1098 1098 1663; Mul 1663 856 1312; Mul 1327 434 1443; Add 1663 1663 1327; Sub 1098 1098 1663;
  Mul 1663 358 1639; Mul 1327 443 1325; Add 1663 1663 1327; Mul 1327 372 1670; Mul 1577 426 1303;
  Add 1327 1327 1577; Add 1663 1663 1327; Mul 1349 369 1349; Mul 1327 478 1373; Add 1349 1349 1327;
  Add 1663 1663 1349; Sub 1098 1098 1663; Mul 1663 508 1098; Mul 1604 859 1604; Add 1663 1663 1604;
  Mul 1604 856 1451; Mul 1349 438 1443; Add 1604 1604 1349; Mul 1417 858 1417; Mul 1349 445 1410;
  Add 1417 1417 1349; Sub 1604 1604 1417; Mul 1417 358 1438; Mul 1349 609 1325; Add 1417 1417 1349;
  Mul 1511 372 1511; Mul 1349 604 1303; Add 1511 1511 1349; Add 1417 1417 1511; Mul 1670 369 1670;
  Mul 1511 426 1373; Add 1670 1670 1511; Add 1417 1417 1670; Sub 1604 1604 1417; Mul 1417 536 1604;
  Mul 1539 862 1539; Add 1417 1417 1539; Sub 1663 1663 1417; Mul 1312 858 1312; Mul 1417 434 1410;
  Add 1312 1312 1417; Mul 1451 860 1451; Mul 1417 438 1518; Add 1451 1451 1417; Sub 1312 1312 1451;
  Mul 1451 13 1325; Mul 1146 358 1146; Sub 1451 1451 1146; Mul 1438 372 1438; Mul 1146 609 1303;
  Add 1438 1438 1146; Add 1451 1451 1438; Mul 1639 369 1639; Mul 1438 443 1373; Add 1639 1639 1438;
  Add 1451 1451 1639; Sub 1312 1312 1451; Mul 1451 526 1312; Mul 1162 863 1162; Add 1451 1451 1162;
  Sub 1663 1663 1451; Add 1207 1207 1663; Add 1076 1076 1181; Mul 1181 803 1303; Mul 1145 372 1145;
  Add 1181 1181 1145; Mul 1145 648 1373; Mul 1576 369 1576; Add 1145 1145 1576; Add 1181 1181 1145;
  Add 1076 1076 1181; Mul 1181 540 1076; Mul 1084 861 1084; Sub 1181 1181 1084].
Definition casadi_f0_657 : list instruction := [
  Mul 1084 394 1325; Mul 1582 358 1582; Add 1084 1084 1582; Add 1113 1113 1425; Mul 1425 669 1373;
  Mul 1551 369 1551; Add 1425 1425 1551; Add 1113 1113 1425; Add 1084 1084 1113; Mul 1113 544 1084;
  Mul 1158 865 1158; Add 1113 1113 1158; Add 1181 1181 1113; Mul 1113 801 1314; Mul 1644 736 1644;
  Add 1113 1113 1644; Add 1621 1621 1426; Mul 1426 355 1122; Mul 1154 738 1154; Add 1426 1426 1154;
  Add 1621 1621 1426; Add 1113 1113 1621; Mul 1621 359 1325; Mul 1398 358 1398; Add 1621 1621 1398;
  Add 1167 1167 1317; Mul 1317 608 1373; Mul 1503 369 1503; Add 1317 1317 1503; Add 1167 1167 1317;
  Add 1621 1621 1167; Sub 1113 1113 1621; Mul 1621 216 1113; Mul 1578 866 1578; Sub 1621 1621 1578;
  Add 1271 1271 1032; Mul 1032 457 1276; Mul 1239 741 1239; Add 1032 1032 1239; Mul 1239 234 1122;
  Mul 1333 738 1333; Add 1239 1239 1333; Add 1032 1032 1239; Add 1271 1271 1032; Add 1341 1341 1074;
  Mul 1074 352 1303; Mul 1695 372 1695; Add 1074 1074 1695; Mul 1695 622 1373; Mul 1215 369 1215;
  Add 1695 1695 1215; Add 1074 1074 1695; Add 1341 1341 1074; Sub 1271 1271 1341; Mul 1341 215 1271;
  Mul 1144 868 1144; Add 1341 1341 1144; Sub 1144 1621 1341; Add 1181 1181 1144; Add 1207 1207 1181;
  Mul 1207 1 1207; Mul 1422 857 1422; Add 1207 1207 1422; Add 1497 1497 1207; Mul 1207 678 1443;
  Mul 1247 856 1247; Add 1207 1207 1247; Mul 1247 673 1518; Mul 1640 860 1640; Add 1247 1247 1640;
  Mul 1640 799 1410; Mul 1209 858 1209; Add 1640 1640 1209; Add 1247 1247 1640; Add 1207 1207 1247;
  Mul 1247 602 1312; Mul 1109 863 1109; Add 1247 1247 1109; Mul 1109 670 1604; Mul 1111 862 1111;
  Add 1109 1109 1111; Mul 1111 671 1098; Mul 1515 859 1515; Add 1111 1111 1515; Sub 1109 1109 1111;
  Add 1247 1247 1109; Add 1207 1207 1247; Mul 1247 245 1325; Mul 1182 358 1182; Add 1247 1247 1182;
  Mul 1182 356 1303; Mul 1283 372 1283; Add 1182 1182 1283; Add 1186 1186 1584; Add 1182 1182 1186;
  Add 1247 1247 1182; Mul 1182 676 1247; Mul 1147 871 1147; Add 1182 1182 1147; Mul 1147 680 1084;
  Mul 1338 865 1338; Add 1147 1147 1338; Sub 1182 1182 1147; Mul 1147 674 1076; Mul 1647 861 1647;
  Sub 1147 1147 1647; Sub 1182 1182 1147; Sub 1341 1341 1621; Add 1182 1182 1341; Add 1207 1207 1182;
  Mul 1207 2 1207; Mul 1598 864 1598; Add 1207 1207 1598; Add 1497 1497 1207; Mul 1207 717 1443;
  Mul 1560 856 1560; Add 1207 1207 1560; Mul 1560 787 1410; Mul 1571 858 1571; Add 1560 1560 1571;
  Mul 1571 713 1518; Mul 1666 860 1666; Add 1571 1571 1666; Sub 1560 1560 1571; Add 1207 1207 1560;
  Mul 1560 677 1098; Mul 1432 859 1432; Add 1560 1560 1432; Mul 1432 712 1604; Mul 1329 862 1329;
  Add 1432 1432 1329; Sub 1560 1560 1432; Mul 1432 706 1312; Mul 1610 863 1610; Add 1432 1432 1610;
  Sub 1560 1560 1432; Add 1207 1207 1560; Mul 1560 714 1076; Mul 1360 861 1360; Add 1560 1560 1360;
  Mul 1360 718 1084; Mul 1383 865 1383; Add 1360 1360 1383; Mul 1383 716 1247; Mul 1617 871 1617;
  Add 1383 1383 1617; Sub 1360 1360 1383; Add 1560 1560 1360; Add 1560 1560 1144].
Definition casadi_f0_658 : list instruction := [
  Add 1207 1207 1560; Mul 1207 3 1207; Mul 1593 872 1593; Add 1207 1207 1593; Add 1497 1497 1207;
  Mul 1443 729 1443; Mul 1226 856 1226; Add 1443 1443 1226; Mul 1518 724 1518; Mul 1691 860 1691;
  Add 1518 1518 1691; Mul 1410 688 1410; Mul 1547 858 1547; Add 1410 1410 1547; Add 1518 1518 1410;
  Add 1443 1443 1518; Mul 1312 715 1312; Mul 1094 863 1094; Add 1312 1312 1094; Mul 1604 721 1604;
  Mul 1517 862 1517; Add 1604 1604 1517; Mul 1098 722 1098; Mul 1681 859 1681; Add 1098 1098 1681;
  Add 1604 1604 1098; Add 1312 1312 1604; Add 1443 1443 1312; Mul 1076 725 1076; Mul 1557 861 1557;
  Add 1076 1076 1557; Mul 1084 731 1084; Mul 1667 865 1667; Add 1084 1084 1667; Mul 1247 727 1247;
  Mul 1649 871 1649; Add 1247 1247 1649; Add 1084 1084 1247; Add 1076 1076 1084; Mul 1271 310 1271;
  Mul 1139 868 1139; Add 1271 1271 1139; Mul 1113 327 1113; Mul 1130 866 1130; Add 1113 1113 1130;
  Mul 1281 318 1281; Mul 1086 849 1086; Add 1281 1281 1086; Add 1113 1113 1281; Add 1271 1271 1113;
  Add 1076 1076 1271; Sub 1443 1443 1076; Mul 1443 4 1443; Mul 1513 869 1513; Add 1443 1443 1513;
  Add 1497 1497 1443; Mul 1314 820 1314; Mul 1488 736 1488; Add 1314 1314 1488; Mul 1276 822 1276;
  Mul 1267 741 1267; Add 1276 1276 1267; Mul 1122 788 1122; Mul 1132 738 1132; Add 1122 1122 1132;
  Add 1276 1276 1122; Add 1314 1314 1276; Mul 1325 817 1325; Mul 1208 358 1208; Add 1325 1325 1208;
  Mul 1303 814 1303; Mul 1236 372 1236; Add 1303 1303 1236; Mul 1373 732 1373; Mul 1650 369 1650;
  Add 1373 1373 1650; Add 1303 1303 1373; Add 1325 1325 1303; Sub 1314 1314 1325; Mul 1314 5 1314;
  Mul 1636 870 1636; Add 1314 1314 1636; Add 1497 1497 1314; Sub 1372 1372 1497; Mul 1497 754 1372;
  Add 1321 1321 1497; Add 1600 1600 1321; Mul 1321 210 1020; Mul 1497 200 1635; Add 1321 1321 1497;
  Mul 1035 19 1035; Mul 1497 196 1490; Sub 1035 1035 1497; Mul 1497 189 1356; Mul 1612 35 1612;
  Sub 1497 1497 1612; Sub 1035 1035 1497; Mul 1651 55 1651; Mul 1492 62 1492; Add 1651 1651 1492;
  Add 1035 1035 1651; Mul 1298 86 1298; Mul 1250 91 1250; Add 1298 1298 1250; Add 1298 1035 1298;
  Mul 1259 102 1259; Sub 1259 1298 1259; Mul 1250 777 1259; Mul 1651 209 1359; Add 1250 1250 1651;
  Add 1321 1321 1250; Mul 1250 778 1298; Mul 1651 867 1399; Add 1250 1250 1651; Add 1321 1321 1250;
  Mul 1250 769 1035; Mul 1651 855 1435; Add 1250 1250 1651; Add 1321 1321 1250; Mul 1250 761 1463;
  Mul 1651 201 1519; Add 1250 1250 1651; Sub 1321 1321 1250; Mul 1250 873 1678; Add 1321 1321 1250;
  Mul 1250 1006 1321; Mul 1651 210 1321; Mul 1492 756 1635; Add 1651 1651 1492; Sub 1020 1020 1651;
  Mul 1651 881 1020; Mul 1492 210 1625; Mul 1497 143 1635; Add 1492 1492 1497; Sub 1222 1222 1514;
  Sub 1532 1532 1661; Mul 1532 37 1532; Add 1222 1222 1532; Sub 1266 1266 1269; Mul 1266 80 1266;
  Add 1266 1222 1266; Sub 1309 1309 1128; Mul 1309 100 1309; Add 1309 1266 1309; Mul 1531 1064 1531;
  Mul 1131 1061 1131; Add 1531 1531 1131; Mul 1531 141 1531; Add 1309 1309 1531].
Definition casadi_f0_659 : list instruction := [
  Mul 1531 777 1309; Mul 1131 876 1359; Add 1531 1531 1131; Add 1492 1492 1531; Mul 1430 151 1430;
  Mul 1201 103 1201; Add 1430 1430 1201; Mul 1508 148 1508; Mul 1136 105 1136; Add 1508 1508 1136;
  Sub 1430 1430 1508; Sub 1430 1430 1266; Mul 1210 102 1210; Sub 1210 1430 1210; Mul 1266 778 1210;
  Mul 1508 153 1399; Add 1266 1266 1508; Sub 1492 1492 1266; Mul 1592 1057 1592; Mul 1307 1065 1307;
  Sub 1592 1592 1307; Mul 1592 156 1592; Add 1222 1222 1592; Mul 1395 86 1395; Mul 1561 91 1561;
  Sub 1395 1395 1561; Add 1395 1222 1395; Mul 1408 102 1408; Sub 1408 1395 1408; Mul 1561 769 1408;
  Mul 1592 171 1435; Add 1561 1561 1592; Add 1492 1492 1561; Mul 1356 180 1356; Mul 1361 35 1361;
  Add 1356 1356 1361; Mul 1288 19 1288; Mul 1490 182 1490; Sub 1288 1288 1490; Sub 1356 1356 1288;
  Mul 1026 55 1026; Add 1356 1356 1026; Mul 1092 86 1092; Mul 1071 91 1071; Add 1092 1092 1071;
  Add 1092 1356 1092; Mul 1052 102 1052; Sub 1052 1092 1052; Mul 1071 761 1052; Mul 1026 188 1519;
  Add 1071 1071 1026; Add 1492 1492 1071; Mul 1071 754 1259; Mul 1026 209 1678; Add 1071 1071 1026;
  Add 1492 1492 1071; Mul 1071 210 1492; Mul 1026 875 1635; Add 1071 1071 1026; Sub 1625 1625 1071;
  Div 1071 1625 65; Mul 1625 89 1625; Mul 1026 777 1492; Mul 1288 875 1359; Add 1026 1026 1288;
  Sub 1309 1309 1026; Mul 1026 58 1309; Add 1625 1625 1026; Mul 1026 778 1492; Mul 1288 875 1399;
  Add 1026 1026 1288; Add 1026 1210 1026; Mul 1288 45 1026; Add 1625 1625 1288; Mul 1288 769 1492;
  Mul 1490 875 1435; Add 1288 1288 1490; Sub 1288 1408 1288; Mul 1490 22 1288; Add 1625 1625 1490;
  Mul 1490 761 1492; Mul 1361 875 1519; Add 1490 1490 1361; Sub 1490 1052 1490; Mul 1361 879 1490;
  Add 1625 1625 1361; Mul 1361 754 1492; Mul 1561 875 1678; Add 1361 1361 1561; Sub 1361 1259 1361;
  Mul 1561 880 1361; Add 1625 1625 1561; Div 1625 1625 1045; Mul 1561 1078 1625; Sub 1071 1071 1561;
  Mul 1561 874 1071; Add 1651 1651 1561; Mul 1561 777 1321; Mul 1592 756 1359; Add 1561 1561 1592;
  Sub 1259 1259 1561; Mul 1561 884 1259; Div 1309 1309 65; Mul 1592 1029 1625; Sub 1309 1309 1592;
  Mul 1592 883 1309; Add 1561 1561 1592; Add 1651 1651 1561; Mul 1561 778 1321; Mul 1592 756 1399;
  Add 1561 1561 1592; Sub 1561 1561 1298; Mul 1592 886 1561; Div 1026 1026 65; Mul 1307 1063 1625;
  Sub 1026 1026 1307; Mul 1307 885 1026; Add 1592 1592 1307; Add 1651 1651 1592; Mul 1592 769 1321;
  Mul 1307 756 1435; Add 1592 1592 1307; Sub 1592 1035 1592; Mul 1307 888 1592; Div 1288 1288 65;
  Mul 1266 1040 1625; Sub 1288 1288 1266; Mul 1266 887 1288; Add 1307 1307 1266; Add 1651 1651 1307;
  Mul 1307 761 1321; Mul 1266 756 1519; Add 1307 1307 1266; Add 1307 1463 1307; Mul 1266 890 1307;
  Div 1490 1490 65; Mul 1508 1027 1625; Sub 1490 1490 1508; Mul 1508 889 1490; Add 1266 1266 1508;
  Sub 1651 1651 1266; Div 1361 1361 65; Mul 1266 1046 1625; Sub 1361 1361 1266; Mul 1266 891 1361;
  Mul 1321 754 1321; Mul 1508 756 1678; Add 1321 1321 1508; Mul 1508 892 1321].
Definition casadi_f0_660 : list instruction := [
  Sub 1266 1266 1508; Add 1651 1651 1266; Mul 1266 881 1651; Mul 1508 882 1071; Add 1266 1266 1508;
  Sub 1020 1020 1266; Mul 1266 884 1651; Mul 1508 882 1309; Add 1266 1266 1508; Sub 1259 1259 1266;
  Mul 1266 910 1259; Mul 1508 777 1210; Mul 1136 153 1359; Add 1508 1508 1136; Mul 1136 210 1669;
  Mul 1201 154 1635; Add 1136 1136 1201; Sub 1508 1508 1136; Mul 1136 778 1430; Mul 1201 106 1399;
  Add 1136 1136 1201; Add 1508 1508 1136; Mul 1136 769 1395; Mul 1201 877 1435; Add 1136 1136 1201;
  Sub 1508 1508 1136; Mul 1136 761 1092; Mul 1201 94 1519; Add 1136 1136 1201; Sub 1508 1508 1136;
  Mul 1136 754 1298; Mul 1201 867 1678; Add 1136 1136 1201; Sub 1508 1508 1136; Mul 1136 777 1508;
  Mul 1201 895 1359; Add 1136 1136 1201; Sub 1210 1210 1136; Mul 1136 884 1210; Mul 1201 896 1309;
  Add 1136 1136 1201; Mul 1201 210 1508; Mul 1531 895 1635; Add 1201 1201 1531; Add 1669 1669 1201;
  Mul 1201 881 1669; Mul 1531 898 1071; Add 1201 1201 1531; Sub 1136 1136 1201; Mul 1201 778 1508;
  Mul 1531 895 1399; Add 1201 1201 1531; Sub 1201 1201 1430; Mul 1430 886 1201; Mul 1531 899 1026;
  Add 1430 1430 1531; Add 1136 1136 1430; Mul 1430 769 1508; Mul 1531 895 1435; Add 1430 1430 1531;
  Add 1430 1395 1430; Mul 1531 888 1430; Mul 1131 900 1288; Add 1531 1531 1131; Sub 1136 1136 1531;
  Mul 1531 761 1508; Mul 1131 895 1519; Add 1531 1531 1131; Add 1531 1092 1531; Mul 1131 890 1531;
  Mul 1128 901 1490; Add 1131 1131 1128; Sub 1136 1136 1131; Mul 1131 754 1508; Mul 1128 895 1678;
  Add 1131 1131 1128; Add 1298 1298 1131; Mul 1131 892 1298; Mul 1128 902 1361; Add 1131 1131 1128;
  Sub 1136 1136 1131; Mul 1131 884 1136; Mul 1128 897 1309; Add 1131 1131 1128; Sub 1210 1210 1131;
  Div 1131 1210 905; Mul 1128 881 1136; Mul 1269 897 1071; Add 1128 1128 1269; Add 1669 1669 1128;
  Mul 1128 904 1669; Mul 1210 903 1210; Add 1128 1128 1210; Mul 1210 886 1136; Mul 1269 897 1026;
  Add 1210 1210 1269; Sub 1201 1201 1210; Mul 1210 906 1201; Add 1128 1128 1210; Mul 1210 888 1136;
  Mul 1269 897 1288; Add 1210 1210 1269; Add 1430 1430 1210; Mul 1210 907 1430; Add 1128 1128 1210;
  Mul 1210 890 1136; Mul 1269 897 1490; Add 1210 1210 1269; Add 1531 1531 1210; Mul 1210 908 1531;
  Add 1128 1128 1210; Mul 1210 892 1136; Mul 1269 897 1361; Add 1210 1210 1269; Add 1298 1298 1210;
  Mul 1210 909 1298; Add 1128 1128 1210; Div 1128 1128 1067; Mul 1210 1214 1128; Sub 1131 1131 1210;
  Mul 1210 894 1131; Add 1266 1266 1210; Mul 1210 912 1020; Div 1669 1669 905; Mul 1269 1614 1128;
  Sub 1669 1669 1269; Mul 1269 893 1669; Add 1210 1210 1269; Sub 1266 1266 1210; Mul 1210 886 1651;
  Mul 1269 882 1026; Add 1210 1210 1269; Sub 1561 1561 1210; Mul 1210 914 1561; Div 1201 1201 905;
  Mul 1269 1273 1128; Sub 1201 1201 1269; Mul 1269 913 1201; Add 1210 1210 1269; Add 1266 1266 1210;
  Mul 1210 888 1651; Mul 1269 882 1288; Add 1210 1210 1269; Sub 1592 1592 1210; Mul 1210 916 1592;
  Div 1430 1430 905; Mul 1269 1260 1128; Sub 1430 1430 1269; Mul 1269 915 1430].
Definition casadi_f0_661 : list instruction := [
  Add 1210 1210 1269; Sub 1266 1266 1210; Mul 1210 890 1651; Mul 1269 882 1490; Add 1210 1210 1269;
  Add 1307 1307 1210; Mul 1210 918 1307; Div 1531 1531 905; Mul 1269 1249 1128; Sub 1531 1531 1269;
  Mul 1269 917 1531; Add 1210 1210 1269; Add 1266 1266 1210; Div 1298 1298 905; Mul 1210 1569 1128;
  Sub 1298 1298 1210; Mul 1210 919 1298; Mul 1269 892 1651; Mul 1532 882 1361; Add 1269 1269 1532;
  Add 1321 1321 1269; Mul 1269 920 1321; Sub 1210 1210 1269; Sub 1266 1266 1210; Mul 1210 912 1266;
  Mul 1269 911 1669; Add 1210 1210 1269; Add 1020 1020 1210; Mul 1210 944 1020; Mul 1269 210 1028;
  Mul 1532 168 1635; Add 1269 1269 1532; Mul 1532 777 1408; Mul 1661 171 1359; Add 1532 1532 1661;
  Add 1269 1269 1532; Mul 1532 778 1395; Mul 1661 877 1399; Add 1532 1532 1661; Add 1269 1269 1532;
  Mul 1532 769 1222; Mul 1661 878 1435; Add 1532 1532 1661; Add 1269 1269 1532; Mul 1532 761 1356;
  Mul 1661 98 1519; Add 1532 1532 1661; Add 1269 1269 1532; Mul 1532 754 1035; Mul 1661 855 1678;
  Add 1532 1532 1661; Add 1269 1269 1532; Mul 1532 210 1269; Mul 1661 922 1635; Add 1532 1532 1661;
  Sub 1028 1028 1532; Mul 1532 881 1028; Mul 1661 923 1071; Add 1532 1532 1661; Mul 1661 777 1269;
  Mul 1514 922 1359; Add 1661 1661 1514; Sub 1408 1408 1661; Mul 1661 884 1408; Mul 1514 925 1309;
  Add 1661 1661 1514; Add 1532 1532 1661; Mul 1661 778 1269; Mul 1514 922 1399; Add 1661 1661 1514;
  Sub 1661 1661 1395; Mul 1395 886 1661; Mul 1514 926 1026; Add 1395 1395 1514; Add 1532 1532 1395;
  Mul 1395 769 1269; Mul 1514 922 1435; Add 1395 1395 1514; Sub 1222 1222 1395; Mul 1395 888 1222;
  Mul 1514 927 1288; Add 1395 1395 1514; Add 1532 1532 1395; Mul 1395 761 1269; Mul 1514 922 1519;
  Add 1395 1395 1514; Sub 1395 1356 1395; Mul 1514 890 1395; Mul 1497 928 1490; Add 1514 1514 1497;
  Add 1532 1532 1514; Mul 1514 754 1269; Mul 1497 922 1678; Add 1514 1514 1497; Sub 1035 1035 1514;
  Mul 1514 892 1035; Mul 1497 929 1361; Add 1514 1514 1497; Add 1532 1532 1514; Mul 1514 881 1532;
  Mul 1497 924 1071; Add 1514 1514 1497; Sub 1028 1028 1514; Mul 1514 884 1532; Mul 1497 924 1309;
  Add 1514 1514 1497; Sub 1408 1408 1514; Mul 1514 910 1408; Mul 1497 931 1131; Add 1514 1514 1497;
  Mul 1497 912 1028; Mul 1612 930 1669; Add 1497 1497 1612; Sub 1514 1514 1497; Mul 1497 886 1532;
  Mul 1612 924 1026; Add 1497 1497 1612; Sub 1661 1661 1497; Mul 1497 914 1661; Mul 1612 933 1201;
  Add 1497 1497 1612; Add 1514 1514 1497; Mul 1497 888 1532; Mul 1612 924 1288; Add 1497 1497 1612;
  Sub 1222 1222 1497; Mul 1497 916 1222; Mul 1612 934 1430; Add 1497 1497 1612; Sub 1514 1514 1497;
  Mul 1497 890 1532; Mul 1612 924 1490; Add 1497 1497 1612; Sub 1395 1395 1497; Mul 1497 918 1395;
  Mul 1612 935 1531; Add 1497 1497 1612; Sub 1514 1514 1497; Mul 1497 892 1532; Mul 1612 924 1361;
  Add 1497 1497 1612; Sub 1035 1035 1497; Mul 1497 920 1035; Mul 1612 936 1298; Add 1497 1497 1612;
  Sub 1514 1514 1497; Mul 1497 912 1514; Mul 1612 932 1669; Add 1497 1497 1612].
Definition casadi_f0_662 : list instruction := [
  Add 1028 1028 1497; Div 1497 1028 938; Mul 1028 937 1028; Mul 1612 910 1514; Mul 1314 932 1131;
  Add 1612 1612 1314; Sub 1408 1408 1612; Mul 1612 939 1408; Add 1028 1028 1612; Mul 1612 914 1514;
  Mul 1314 932 1201; Add 1612 1612 1314; Sub 1661 1661 1612; Mul 1612 940 1661; Add 1028 1028 1612;
  Mul 1612 916 1514; Mul 1314 932 1430; Add 1612 1612 1314; Add 1222 1222 1612; Mul 1612 941 1222;
  Add 1028 1028 1612; Mul 1612 918 1514; Mul 1314 932 1531; Add 1612 1612 1314; Add 1395 1395 1612;
  Mul 1612 942 1395; Add 1028 1028 1612; Mul 1612 920 1514; Mul 1314 932 1298; Add 1612 1612 1314;
  Add 1035 1035 1612; Mul 1612 943 1035; Add 1028 1028 1612; Div 1028 1028 1615; Mul 1612 1446 1028;
  Sub 1497 1497 1612; Mul 1612 921 1497; Add 1210 1210 1612; Mul 1612 910 1266; Mul 1314 911 1131;
  Add 1612 1612 1314; Sub 1259 1259 1612; Mul 1612 947 1259; Div 1408 1408 938; Mul 1314 1184 1028;
  Sub 1408 1408 1314; Mul 1314 946 1408; Add 1612 1612 1314; Add 1210 1210 1612; Mul 1612 914 1266;
  Mul 1314 911 1201; Add 1612 1612 1314; Sub 1561 1561 1612; Mul 1612 949 1561; Div 1661 1661 938;
  Mul 1314 1160 1028; Sub 1661 1661 1314; Mul 1314 948 1661; Add 1612 1612 1314; Add 1210 1210 1612;
  Mul 1612 916 1266; Mul 1314 911 1430; Add 1612 1612 1314; Add 1592 1592 1612; Mul 1612 951 1592;
  Div 1222 1222 938; Mul 1314 1328 1028; Sub 1222 1222 1314; Mul 1314 950 1222; Add 1612 1612 1314;
  Add 1210 1210 1612; Mul 1612 918 1266; Mul 1314 911 1531; Add 1612 1612 1314; Sub 1612 1612 1307;
  Mul 1307 953 1612; Div 1395 1395 938; Mul 1314 1155 1028; Sub 1395 1395 1314; Mul 1314 952 1395;
  Add 1307 1307 1314; Add 1210 1210 1307; Mul 1307 920 1266; Mul 1314 911 1298; Add 1307 1307 1314;
  Sub 1307 1307 1321; Mul 1321 955 1307; Div 1035 1035 938; Mul 1314 1220 1028; Sub 1035 1035 1314;
  Mul 1314 954 1035; Add 1321 1321 1314; Add 1210 1210 1321; Mul 1321 944 1210; Mul 1314 945 1497;
  Add 1321 1321 1314; Sub 1020 1020 1321; Mul 1321 986 1020; Mul 1314 210 1385; Mul 1636 175 1635;
  Add 1314 1314 1636; Mul 1636 777 1052; Mul 1325 188 1359; Add 1636 1636 1325; Add 1314 1314 1636;
  Mul 1636 778 1092; Mul 1325 94 1399; Add 1636 1636 1325; Add 1314 1314 1636; Mul 1636 769 1356;
  Mul 1325 98 1435; Add 1636 1636 1325; Add 1314 1314 1636; Mul 1636 761 1290; Mul 1325 172 1519;
  Add 1636 1636 1325; Sub 1314 1314 1636; Mul 1636 754 1463; Mul 1325 201 1678; Add 1636 1636 1325;
  Sub 1314 1314 1636; Mul 1636 210 1314; Mul 1635 957 1635; Add 1636 1636 1635; Sub 1385 1385 1636;
  Mul 1636 881 1385; Mul 1635 958 1071; Add 1636 1636 1635; Mul 1635 777 1314; Mul 1359 957 1359;
  Add 1635 1635 1359; Sub 1052 1052 1635; Mul 1635 884 1052; Mul 1359 960 1309; Add 1635 1635 1359;
  Add 1636 1636 1635; Mul 1635 778 1314; Mul 1399 957 1399; Add 1635 1635 1399; Sub 1635 1635 1092;
  Mul 1092 886 1635; Mul 1399 961 1026; Add 1092 1092 1399; Add 1636 1636 1092; Mul 1092 769 1314;
  Mul 1435 957 1435; Add 1092 1092 1435; Sub 1356 1356 1092; Mul 1092 888 1356].
Definition casadi_f0_663 : list instruction := [
  Mul 1435 962 1288; Add 1092 1092 1435; Add 1636 1636 1092; Mul 1092 761 1314; Mul 1519 957 1519;
  Add 1092 1092 1519; Add 1290 1290 1092; Mul 1092 890 1290; Mul 1519 963 1490; Add 1092 1092 1519;
  Sub 1636 1636 1092; Mul 1092 754 1314; Mul 1678 957 1678; Add 1092 1092 1678; Add 1463 1463 1092;
  Mul 1092 892 1463; Mul 1678 964 1361; Add 1092 1092 1678; Sub 1636 1636 1092; Mul 1092 881 1636;
  Mul 1678 959 1071; Add 1092 1092 1678; Sub 1385 1385 1092; Mul 1092 884 1636; Mul 1678 959 1309;
  Add 1092 1092 1678; Sub 1052 1052 1092; Mul 1092 910 1052; Mul 1678 966 1131; Add 1092 1092 1678;
  Mul 1678 912 1385; Mul 1519 965 1669; Add 1678 1678 1519; Sub 1092 1092 1678; Mul 1678 886 1636;
  Mul 1519 959 1026; Add 1678 1678 1519; Sub 1635 1635 1678; Mul 1678 914 1635; Mul 1519 968 1201;
  Add 1678 1678 1519; Add 1092 1092 1678; Mul 1678 888 1636; Mul 1519 959 1288; Add 1678 1678 1519;
  Sub 1356 1356 1678; Mul 1678 916 1356; Mul 1519 969 1430; Add 1678 1678 1519; Sub 1092 1092 1678;
  Mul 1678 890 1636; Mul 1519 959 1490; Add 1678 1678 1519; Add 1290 1290 1678; Mul 1678 918 1290;
  Mul 1519 970 1531; Add 1678 1678 1519; Add 1092 1092 1678; Mul 1678 892 1636; Mul 1519 959 1361;
  Add 1678 1678 1519; Add 1463 1463 1678; Mul 1678 920 1463; Mul 1519 971 1298; Add 1678 1678 1519;
  Add 1092 1092 1678; Mul 1678 912 1092; Mul 1519 967 1669; Add 1678 1678 1519; Add 1385 1385 1678;
  Mul 1678 944 1385; Mul 1519 972 1497; Add 1678 1678 1519; Mul 1519 910 1092; Mul 1435 967 1131;
  Add 1519 1519 1435; Sub 1052 1052 1519; Mul 1519 947 1052; Mul 1435 974 1408; Add 1519 1519 1435;
  Add 1678 1678 1519; Mul 1519 914 1092; Mul 1435 967 1201; Add 1519 1519 1435; Sub 1635 1635 1519;
  Mul 1519 949 1635; Mul 1435 975 1661; Add 1519 1519 1435; Add 1678 1678 1519; Mul 1519 916 1092;
  Mul 1435 967 1430; Add 1519 1519 1435; Add 1356 1356 1519; Mul 1519 951 1356; Mul 1435 976 1222;
  Add 1519 1519 1435; Add 1678 1678 1519; Mul 1519 918 1092; Mul 1435 967 1531; Add 1519 1519 1435;
  Sub 1519 1519 1290; Mul 1290 953 1519; Mul 1435 977 1395; Add 1290 1290 1435; Add 1678 1678 1290;
  Mul 1290 920 1092; Mul 1435 967 1298; Add 1290 1290 1435; Sub 1290 1290 1463; Mul 1463 955 1290;
  Mul 1435 978 1035; Add 1463 1463 1435; Add 1678 1678 1463; Mul 1463 944 1678; Mul 1435 973 1497;
  Add 1463 1463 1435; Sub 1385 1385 1463; Div 1463 1385 980; Mul 1385 979 1385; Mul 1435 947 1678;
  Mul 1399 973 1408; Add 1435 1435 1399; Sub 1052 1052 1435; Mul 1435 981 1052; Add 1385 1385 1435;
  Mul 1435 949 1678; Mul 1399 973 1661; Add 1435 1435 1399; Sub 1635 1635 1435; Mul 1435 982 1635;
  Add 1385 1385 1435; Mul 1435 951 1678; Mul 1399 973 1222; Add 1435 1435 1399; Sub 1356 1356 1435;
  Mul 1435 983 1356; Add 1385 1385 1435; Mul 1435 953 1678; Mul 1399 973 1395; Add 1435 1435 1399;
  Sub 1519 1519 1435; Mul 1435 984 1519; Add 1385 1385 1435; Mul 1435 955 1678; Mul 1399 973 1035;
  Add 1435 1435 1399; Sub 1290 1290 1435; Mul 1435 985 1290; Add 1385 1385 1435].
Definition casadi_f0_664 : list instruction := [
  Div 1385 1385 1630; Mul 1435 1629 1385; Sub 1463 1463 1435; Mul 1435 956 1463; Add 1321 1321 1435;
  Mul 1435 947 1210; Mul 1399 945 1408; Add 1435 1435 1399; Sub 1259 1259 1435; Mul 1435 989 1259;
  Div 1052 1052 980; Mul 1399 1262 1385; Sub 1052 1052 1399; Mul 1399 988 1052; Add 1435 1435 1399;
  Add 1321 1321 1435; Mul 1435 949 1210; Mul 1399 945 1661; Add 1435 1435 1399; Sub 1561 1561 1435;
  Mul 1435 991 1561; Div 1635 1635 980; Mul 1399 1306 1385; Sub 1635 1635 1399; Mul 1399 990 1635;
  Add 1435 1435 1399; Add 1321 1321 1435; Mul 1435 951 1210; Mul 1399 945 1222; Add 1435 1435 1399;
  Sub 1592 1592 1435; Mul 1435 993 1592; Div 1356 1356 980; Mul 1399 1626 1385; Sub 1356 1356 1399;
  Mul 1399 992 1356; Add 1435 1435 1399; Add 1321 1321 1435; Mul 1435 953 1210; Mul 1399 945 1395;
  Add 1435 1435 1399; Sub 1612 1612 1435; Mul 1435 995 1612; Div 1519 1519 980; Mul 1399 1530 1385;
  Sub 1519 1519 1399; Mul 1399 994 1519; Add 1435 1435 1399; Add 1321 1321 1435; Mul 1435 955 1210;
  Mul 1399 945 1035; Add 1435 1435 1399; Sub 1307 1307 1435; Mul 1435 997 1307; Div 1290 1290 980;
  Mul 1399 1472 1385; Sub 1290 1290 1399; Mul 1399 996 1290; Add 1435 1435 1399; Add 1321 1321 1435;
  Mul 1435 986 1321; Mul 1399 987 1463; Add 1435 1435 1399; Sub 1020 1020 1435; Div 1435 1020 999;
  Mul 1020 998 1020; Mul 1399 989 1321; Mul 1359 987 1052; Add 1399 1399 1359; Sub 1259 1259 1399;
  Mul 1399 1000 1259; Add 1020 1020 1399; Mul 1399 991 1321; Mul 1359 987 1635; Add 1399 1399 1359;
  Sub 1561 1561 1399; Mul 1399 1001 1561; Add 1020 1020 1399; Mul 1399 993 1321; Mul 1359 987 1356;
  Add 1399 1399 1359; Sub 1592 1592 1399; Mul 1399 1002 1592; Add 1020 1020 1399; Mul 1399 995 1321;
  Mul 1359 987 1519; Add 1399 1399 1359; Sub 1612 1612 1399; Mul 1399 1003 1612; Add 1020 1020 1399;
  Mul 1399 997 1321; Mul 1359 987 1290; Add 1399 1399 1359; Sub 1307 1307 1399; Mul 1399 1004 1307;
  Add 1020 1020 1399; Div 1020 1020 1095; Mul 1399 1596 1020; Sub 1435 1435 1399; Mul 1435 211 1435;
  Mul 1399 1005 1280; Sub 1435 1435 1399; Div 1259 1259 999; Mul 1399 1331 1020; Sub 1259 1259 1399;
  Mul 1259 779 1259; Mul 1399 1007 1605; Sub 1259 1259 1399; Add 1435 1435 1259; Div 1561 1561 999;
  Mul 1259 1080 1020; Sub 1561 1561 1259; Mul 1561 767 1561; Mul 1259 1008 1387; Add 1561 1561 1259;
  Add 1435 1435 1561; Div 1592 1592 999; Mul 1561 1056 1020; Sub 1592 1592 1561; Mul 1592 775 1592;
  Mul 1561 1009 1464; Sub 1592 1592 1561; Add 1435 1435 1592; Div 1612 1612 999; Mul 1592 1068 1020;
  Sub 1612 1612 1592; Mul 1612 815 1612; Mul 1592 1010 1544; Add 1612 1612 1592; Add 1435 1435 1612;
  Div 1307 1307 999; Mul 1612 1178 1020; Sub 1307 1307 1612; Mul 1307 833 1307; Mul 1612 1011 1372;
  Add 1307 1307 1612; Add 1435 1435 1307; Div 1435 1435 999; Mul 1020 1033 1020; Sub 1435 1435 1020;
  Mul 1020 756 1435; Add 1250 1250 1020; Sub 1600 1600 1250; Mul 1314 1012 1314; Mul 1463 211 1463;
  Mul 1250 986 1280; Sub 1463 1463 1250; Mul 1052 779 1052; Mul 1250 989 1605].
Definition casadi_f0_665 : list instruction := [
  Sub 1052 1052 1250; Add 1463 1463 1052; Mul 1635 767 1635; Mul 1052 991 1387; Add 1635 1635 1052;
  Add 1463 1463 1635; Mul 1356 775 1356; Mul 1635 993 1464; Sub 1356 1356 1635; Add 1463 1463 1356;
  Mul 1519 815 1519; Mul 1356 995 1544; Add 1519 1519 1356; Add 1463 1463 1519; Mul 1290 833 1290;
  Mul 1519 997 1372; Add 1290 1290 1519; Add 1463 1463 1290; Mul 1321 1006 1321; Mul 1290 987 1435;
  Add 1321 1321 1290; Sub 1463 1463 1321; Div 1463 1463 980; Mul 1385 1534 1385; Sub 1463 1463 1385;
  Mul 1385 957 1463; Add 1314 1314 1385; Sub 1600 1600 1314; Mul 1269 1013 1269; Mul 1497 211 1497;
  Mul 1314 944 1280; Sub 1497 1497 1314; Mul 1408 779 1408; Mul 1314 947 1605; Sub 1408 1408 1314;
  Add 1497 1497 1408; Mul 1661 767 1661; Mul 1408 949 1387; Add 1661 1661 1408; Add 1497 1497 1661;
  Mul 1222 775 1222; Mul 1661 951 1464; Sub 1222 1222 1661; Add 1497 1497 1222; Mul 1395 815 1395;
  Mul 1222 953 1544; Add 1395 1395 1222; Add 1497 1497 1395; Mul 1035 833 1035; Mul 1395 955 1372;
  Add 1035 1035 1395; Add 1497 1497 1035; Mul 1210 1006 1210; Mul 1035 945 1435; Add 1210 1210 1035;
  Sub 1497 1497 1210; Mul 1678 1012 1678; Mul 1210 973 1463; Add 1678 1678 1210; Sub 1497 1497 1678;
  Div 1497 1497 938; Mul 1028 1397 1028; Sub 1497 1497 1028; Mul 1028 922 1497; Add 1269 1269 1028;
  Sub 1600 1600 1269; Mul 1508 1014 1508; Mul 1131 779 1131; Mul 1269 910 1605; Sub 1131 1131 1269;
  Mul 1669 211 1669; Mul 1269 912 1280; Sub 1669 1669 1269; Sub 1131 1131 1669; Mul 1201 767 1201;
  Mul 1669 914 1387; Add 1201 1201 1669; Add 1131 1131 1201; Mul 1430 775 1430; Mul 1201 916 1464;
  Sub 1430 1430 1201; Sub 1131 1131 1430; Mul 1531 815 1531; Mul 1430 918 1544; Add 1531 1531 1430;
  Sub 1131 1131 1531; Mul 1298 833 1298; Mul 1531 920 1372; Add 1298 1298 1531; Sub 1131 1131 1298;
  Mul 1266 1006 1266; Mul 1298 911 1435; Add 1266 1266 1298; Sub 1131 1131 1266; Mul 1092 1012 1092;
  Mul 1266 967 1463; Add 1092 1092 1266; Sub 1131 1131 1092; Mul 1514 1013 1514; Mul 1092 932 1497;
  Add 1514 1514 1092; Sub 1131 1131 1514; Div 1131 1131 905; Mul 1128 1553 1128; Sub 1131 1131 1128;
  Mul 1128 895 1131; Add 1508 1508 1128; Sub 1600 1600 1508; Mul 1492 1015 1492; Mul 1071 211 1071;
  Mul 1280 881 1280; Sub 1071 1071 1280; Mul 1309 779 1309; Mul 1605 884 1605; Sub 1309 1309 1605;
  Add 1071 1071 1309; Mul 1026 767 1026; Mul 1387 886 1387; Add 1026 1026 1387; Add 1071 1071 1026;
  Mul 1288 775 1288; Mul 1464 888 1464; Sub 1288 1288 1464; Add 1071 1071 1288; Mul 1490 815 1490;
  Mul 1544 890 1544; Add 1490 1490 1544; Add 1071 1071 1490; Mul 1361 833 1361; Mul 1372 892 1372;
  Add 1361 1361 1372; Add 1071 1071 1361; Mul 1651 1006 1651; Mul 1361 882 1435; Add 1651 1651 1361;
  Sub 1071 1071 1651; Mul 1636 1012 1636; Mul 1651 959 1463; Add 1636 1636 1651; Sub 1071 1071 1636;
  Mul 1532 1013 1532; Mul 1636 924 1497; Add 1532 1532 1636; Sub 1071 1071 1532; Mul 1136 1014 1136;
  Mul 1532 897 1131; Add 1136 1136 1532; Sub 1071 1071 1136; Div 1071 1071 65].
Definition casadi_f0_666 : list instruction := [
  Mul 1625 1623 1625; Sub 1071 1071 1625; Mul 1625 875 1071; Add 1492 1492 1625; Sub 1600 1600 1492;
  Div 1600 1600 92; Mul 1485 759 1485; Sub 1600 1600 1485; Out 1 138 1600; Out 1 139 1071; Out 1 140 1131;
  Out 1 141 1497; Out 1 142 1463; Out 1 143 1435; Arg 1435 2 6; Out 2 0 1435; Arg 1463 2 7; Out 2 1 1463;
  Arg 1497 2 8; Out 2 2 1497; Arg 1131 2 9; Out 2 3 1131; Arg 1071 2 10; Out 2 4 1071; Arg 1600 2 11;
  Out 2 5 1600; Mul 1485 756 1596; Sub 1485 210 1485; Mul 1492 987 1596; Sub 1492 986 1492; Div 1492 1492 980;
  Mul 1625 957 1492; Sub 1485 1485 1625; Mul 1625 945 1596; Sub 1625 944 1625; Mul 1136 973 1492;
  Sub 1625 1625 1136; Div 1625 1625 938; Mul 1136 922 1625; Sub 1485 1485 1136; Mul 1136 911 1596;
  Add 1136 912 1136; Mul 1532 967 1492; Add 1136 1136 1532; Mul 1532 932 1625; Add 1136 1136 1532;
  Div 1136 1136 905; Mul 1532 895 1136; Add 1485 1485 1532; Mul 1532 882 1596; Sub 1532 881 1532;
  Mul 1636 959 1492; Sub 1532 1532 1636; Mul 1636 924 1625; Sub 1532 1532 1636; Mul 1636 897 1136;
  Add 1532 1532 1636; Div 1532 1532 65; Mul 1636 875 1532; Sub 1485 1485 1636; Div 1485 1485 92; Arg 1636 2 2;
  Mul 1651 8 1636; Mul 1361 10 1651; Arg 1372 2 5; Mul 1490 16 1372; Mul 1544 21 1490; Mul 1372 15 1372;
  Mul 1288 18 1372; Mul 1464 14 1490; Add 1288 1288 1464; Mul 1464 15 1288; Sub 1544 1544 1464;
  Mul 1464 18 1490; Mul 1026 14 1372; Sub 1464 1464 1026; Mul 1464 16 1464; Mul 1026 17 1372;
  Sub 1464 1464 1026; Sub 1026 1544 1464; Mul 1387 28 1372; Mul 1309 26 1490; Add 1387 1387 1309;
  Mul 1309 1031 1387; Mul 1605 28 1490; Mul 1280 26 1372; Sub 1605 1605 1280; Mul 1280 29 1605;
  Sub 1508 1309 1280; Mul 1508 20 1508; Add 1026 1026 1508; Mul 1280 20 1280; Add 1544 1544 1280;
  Add 1026 1026 1544; Mul 1309 20 1309; Add 1464 1464 1309; Add 1464 1464 1544; Add 1309 1026 1464;
  Mul 1464 19 1464; Arg 1280 2 4; Mul 1508 35 1280; Mul 1128 30 1508; Sub 1464 1464 1128; Mul 1280 19 1280;
  Mul 1128 41 1280; Mul 1514 42 1490; Mul 1092 40 1372; Sub 1514 1514 1092; Mul 1092 43 1490;
  Sub 1514 1514 1092; Mul 1092 44 1605; Add 1514 1514 1092; Mul 1092 35 1514; Add 1128 1128 1092;
  Sub 1464 1464 1128; Mul 1128 19 1464; Mul 1092 38 1508; Sub 1128 1128 1092; Mul 1514 19 1514;
  Mul 1092 41 1508; Sub 1514 1514 1092; Mul 1092 12 1280; Mul 1026 35 1026; Add 1092 1092 1026;
  Sub 1514 1514 1092; Mul 1092 35 1514; Mul 1026 46 1280; Add 1092 1092 1026; Sub 1128 1128 1092;
  Sub 1309 1309 1128; Sub 1309 1309 1544; Mul 1092 50 1387; Mul 1026 1039 1092; Mul 1266 50 1605;
  Mul 1298 19 1266; Mul 1531 49 1508; Sub 1298 1298 1531; Mul 1531 51 1280; Sub 1298 1298 1531;
  Mul 1531 1041 1298; Sub 1430 1026 1531; Mul 1430 37 1430; Add 1309 1309 1430; Mul 1430 49 1280;
  Mul 1201 35 1266; Add 1430 1430 1201; Mul 1201 51 1508; Sub 1430 1430 1201; Mul 1201 64 1430].
Definition casadi_f0_667 : list instruction := [
  Add 1531 1201 1531; Mul 1531 37 1531; Add 1531 1544 1531; Add 1309 1309 1531; Mul 1669 43 1372;
  Mul 1269 42 1372; Mul 1028 40 1490; Add 1269 1269 1028; Sub 1669 1669 1269; Mul 1269 44 1387;
  Sub 1669 1669 1269; Mul 1269 67 1669; Mul 1028 19 1269; Mul 1678 71 1508; Sub 1028 1028 1678;
  Mul 1678 75 1280; Mul 1288 16 1288; Mul 1210 21 1372; Add 1288 1288 1210; Mul 1387 74 1387; Mul 1605 20 1605;
  Mul 1605 34 1605; Sub 1387 1387 1605; Add 1288 1288 1387; Add 1387 1288 1288; Mul 1605 35 1387;
  Sub 1678 1678 1605; Add 1028 1028 1678; Mul 1678 73 1280; Mul 1605 35 1288; Sub 1678 1678 1605;
  Mul 1605 19 1669; Mul 1210 70 1508; Sub 1605 1605 1210; Add 1678 1678 1605; Sub 1028 1028 1678;
  Mul 1678 76 1092; Mul 1605 37 1430; Mul 1210 57 1605; Sub 1678 1678 1210; Sub 1028 1028 1678;
  Mul 1678 67 1028; Mul 1678 66 1678; Arg 1210 2 3; Mul 1035 53 1210; Mul 1395 77 1035; Sub 1678 1678 1395;
  Mul 1210 66 1210; Mul 1395 11 1210; Mul 1222 53 1309; Add 1395 1395 1222; Sub 1678 1678 1395;
  Mul 1395 53 1678; Mul 1222 78 1210; Add 1395 1395 1222; Add 1309 1309 1395; Sub 1309 1309 1531;
  Mul 1222 87 1035; Mul 1661 83 1092; Mul 1408 66 1661; Add 1222 1222 1408; Mul 1408 88 1210; Mul 1430 83 1430;
  Mul 1314 53 1430; Add 1408 1408 1314; Add 1222 1222 1408; Mul 1408 1054 1222; Mul 1314 83 1298;
  Mul 1385 1058 1314; Sub 1321 1408 1385; Mul 1321 80 1321; Add 1309 1309 1321; Add 1531 1531 1395;
  Mul 1395 66 1430; Mul 1321 88 1035; Sub 1395 1395 1321; Mul 1321 87 1210; Mul 1290 53 1661;
  Sub 1321 1321 1290; Add 1395 1395 1321; Mul 1321 93 1395; Add 1385 1321 1385; Mul 1385 80 1385;
  Add 1531 1531 1385; Add 1309 1309 1531; Mul 1385 9 1309; Add 1361 1361 1385; Mul 1678 66 1678;
  Mul 1385 78 1035; Sub 1678 1678 1385; Sub 1678 1678 1028; Mul 1028 72 1222; Mul 1385 80 1395;
  Mul 1290 63 1385; Sub 1028 1028 1290; Sub 1678 1678 1028; Mul 1028 67 1678; Mul 1028 8 1028; Mul 1636 9 1636;
  Mul 1290 97 1636; Sub 1028 1028 1290; Add 1361 1361 1028; Mul 1028 9 1361; Mul 1290 84 1651;
  Add 1028 1028 1290; Sub 1290 1028 1531; Mul 1395 104 1395; Mul 1519 8 1395; Mul 1356 103 1636;
  Sub 1519 1519 1356; Mul 1356 105 1651; Mul 1635 104 1222; Mul 1052 9 1635; Sub 1356 1356 1052;
  Sub 1519 1519 1356; Mul 1356 33 1519; Mul 1052 104 1314; Mul 1250 1066 1052; Add 1020 1356 1250;
  Mul 1020 100 1020; Sub 1290 1290 1020; Mul 1361 8 1361; Mul 1020 84 1636; Sub 1361 1361 1020;
  Sub 1361 1361 1678; Mul 1678 103 1651; Mul 1020 9 1395; Add 1678 1678 1020; Mul 1020 105 1636;
  Mul 1307 8 1635; Add 1020 1020 1307; Sub 1678 1678 1020; Mul 1020 96 1678; Mul 1307 100 1519;
  Mul 1612 117 1307; Sub 1020 1020 1612; Add 1361 1361 1020; Mul 1361 67 1361; Mul 1361 114 1361; Arg 1020 2 1;
  Mul 1612 113 1020; Mul 1592 116 1612; Sub 1361 1361 1592; Mul 1020 114 1020; Mul 1592 119 1020;
  Sub 1309 1309 1028; Sub 1309 1309 1531; Mul 1531 1044 1678; Sub 1250 1531 1250].
Definition casadi_f0_668 : list instruction := [
  Mul 1250 100 1250; Add 1309 1309 1250; Sub 1309 1309 1290; Mul 1309 113 1309; Add 1592 1592 1309;
  Sub 1361 1361 1592; Mul 1361 113 1361; Mul 1592 118 1020; Add 1361 1361 1592; Sub 1290 1290 1361;
  Mul 1519 120 1519; Mul 1361 114 1519; Mul 1592 60 1612; Sub 1361 1361 1592; Mul 1592 121 1020;
  Mul 1309 120 1678; Mul 1250 113 1309; Add 1592 1592 1250; Add 1361 1361 1592; Mul 1592 112 1361;
  Mul 1250 120 1052; Mul 1028 123 1250; Add 1592 1592 1028; Mul 1592 99 1592; Sub 1290 1290 1592;
  Mul 1361 125 1361; Mul 1361 110 1361; Mul 1592 125 1250; Mul 1592 126 1592; Add 1361 1361 1592;
  Mul 1361 122 1361; Add 1290 1290 1361; Div 1361 1290 92; Mul 1290 6 1290; Mul 1592 130 1651; Mul 1514 19 1514;
  Mul 1028 46 1508; Sub 1514 1514 1028; Mul 1464 35 1464; Mul 1028 38 1280; Add 1464 1464 1028;
  Add 1514 1514 1464; Mul 1605 52 1605; Mul 1464 76 1298; Add 1605 1605 1464; Add 1514 1514 1605;
  Mul 1605 66 1514; Mul 1464 129 1035; Sub 1605 1605 1464; Mul 1464 132 1210; Mul 1028 70 1280;
  Mul 1561 35 1669; Add 1028 1028 1561; Mul 1561 73 1508; Mul 1259 19 1288; Add 1561 1561 1259;
  Add 1028 1028 1561; Mul 1387 19 1387; Mul 1561 75 1508; Add 1387 1387 1561; Mul 1269 35 1269;
  Mul 1561 71 1280; Add 1269 1269 1561; Add 1387 1387 1269; Sub 1028 1028 1387; Mul 1387 133 1092;
  Mul 1298 37 1298; Mul 1298 57 1298; Sub 1387 1387 1298; Sub 1028 1028 1387; Mul 1387 53 1028;
  Add 1464 1464 1387; Add 1605 1605 1464; Mul 1385 27 1385; Mul 1464 72 1314; Add 1385 1385 1464;
  Add 1605 1605 1385; Mul 1385 9 1605; Add 1592 1592 1385; Add 1385 1028 1028; Mul 1385 66 1385;
  Mul 1464 136 1035; Sub 1385 1385 1464; Mul 1464 129 1210; Mul 1387 53 1514; Add 1464 1464 1387;
  Sub 1385 1385 1464; Mul 1464 66 1028; Mul 1387 132 1035; Sub 1464 1464 1387; Sub 1385 1385 1464;
  Mul 1222 138 1222; Mul 1464 80 1314; Mul 1464 63 1464; Sub 1222 1222 1464; Sub 1385 1385 1222;
  Add 1222 1385 1385; Mul 1222 8 1222; Mul 1464 139 1636; Sub 1222 1222 1464; Add 1592 1592 1222;
  Mul 1222 8 1385; Mul 1464 137 1636; Sub 1222 1222 1464; Sub 1592 1592 1222; Mul 1678 140 1678;
  Mul 1222 100 1052; Mul 1222 117 1222; Sub 1678 1678 1222; Add 1592 1592 1678; Mul 1678 141 1250;
  Mul 1678 121 1678; Mul 1222 142 1309; Add 1678 1678 1222; Sub 1592 1592 1678; Mul 1592 114 1592;
  Mul 1678 134 1612; Sub 1592 1592 1678; Mul 1678 145 1020; Mul 1222 8 1605; Mul 1464 130 1636;
  Sub 1222 1222 1464; Mul 1464 137 1651; Mul 1387 9 1385; Add 1464 1464 1387; Sub 1222 1222 1464;
  Mul 1307 111 1307; Mul 1464 96 1052; Add 1307 1307 1464; Add 1222 1222 1307; Mul 1307 141 1519;
  Mul 1307 124 1307; Mul 1250 146 1250; Add 1307 1307 1250; Sub 1222 1222 1307; Mul 1222 113 1222;
  Add 1678 1678 1222; Sub 1592 1592 1678; Mul 1678 1073 1592; Add 1290 1290 1678; Mul 1678 150 1020;
  Mul 1222 149 1651; Mul 1307 148 1052; Mul 1250 147 1635; Mul 1464 109 1250; Sub 1307 1307 1464;
  Add 1385 1385 1307; Mul 1307 9 1385; Add 1222 1222 1307].
Definition casadi_f0_669 : list instruction := [
  Mul 1052 151 1052; Mul 1307 147 1395; Mul 1464 109 1307; Add 1052 1052 1464; Add 1605 1605 1052;
  Mul 1052 8 1605; Mul 1464 152 1636; Sub 1052 1052 1464; Sub 1222 1222 1052; Mul 1052 148 1651;
  Mul 1464 9 1250; Sub 1052 1052 1464; Mul 1464 8 1307; Mul 1387 151 1636; Sub 1464 1464 1387;
  Sub 1052 1052 1464; Mul 1464 108 1052; Add 1222 1222 1464; Mul 1222 113 1222; Add 1678 1678 1222;
  Mul 1222 152 1651; Mul 1605 9 1605; Add 1222 1222 1605; Mul 1385 8 1385; Mul 1605 149 1636;
  Sub 1385 1385 1605; Add 1222 1222 1385; Mul 1385 151 1651; Mul 1605 9 1307; Add 1385 1385 1605;
  Mul 1605 148 1636; Mul 1464 8 1250; Add 1605 1605 1464; Sub 1385 1385 1605; Mul 1385 108 1385;
  Add 1222 1222 1385; Mul 1222 114 1222; Mul 1385 155 1612; Sub 1222 1222 1385; Add 1678 1678 1222;
  Mul 1222 1050 1678; Add 1290 1290 1222; Mul 1222 159 1651; Mul 1385 156 1430; Mul 1385 82 1385;
  Mul 1605 157 1314; Add 1385 1385 1605; Sub 1514 1514 1385; Mul 1385 66 1514; Mul 1605 158 1035;
  Sub 1385 1385 1605; Mul 1605 161 1210; Mul 1314 156 1314; Mul 1314 87 1314; Mul 1464 160 1661;
  Sub 1314 1314 1464; Sub 1028 1028 1314; Mul 1314 53 1028; Add 1605 1605 1314; Add 1385 1385 1605;
  Mul 1605 9 1385; Add 1222 1222 1605; Mul 1028 66 1028; Mul 1605 161 1035; Sub 1028 1028 1605;
  Mul 1605 158 1210; Mul 1514 53 1514; Add 1605 1605 1514; Sub 1028 1028 1605; Mul 1605 8 1028;
  Mul 1514 163 1636; Sub 1605 1605 1514; Add 1222 1222 1605; Mul 1605 167 1210; Mul 1514 166 1430;
  Mul 1314 53 1514; Add 1605 1605 1314; Mul 1314 164 1035; Mul 1464 156 1661; Mul 1387 66 1464;
  Add 1314 1314 1387; Sub 1605 1605 1314; Mul 1314 8 1605; Mul 1387 165 1636; Sub 1314 1314 1387;
  Mul 1387 169 1651; Mul 1514 66 1514; Mul 1298 167 1035; Sub 1514 1514 1298; Mul 1298 164 1210;
  Mul 1464 53 1464; Sub 1298 1298 1464; Sub 1514 1514 1298; Mul 1298 9 1514; Add 1387 1387 1298;
  Sub 1314 1314 1387; Mul 1314 108 1314; Sub 1222 1222 1314; Mul 1222 114 1222; Mul 1314 162 1612;
  Sub 1222 1222 1314; Mul 1314 170 1020; Mul 1385 8 1385; Mul 1387 159 1636; Sub 1385 1385 1387;
  Mul 1387 163 1651; Mul 1028 9 1028; Add 1387 1387 1028; Sub 1385 1385 1387; Mul 1387 165 1651;
  Mul 1028 9 1605; Add 1387 1387 1028; Mul 1028 8 1514; Mul 1298 169 1636; Sub 1028 1028 1298;
  Add 1387 1387 1028; Mul 1028 108 1387; Add 1385 1385 1028; Mul 1385 113 1385; Add 1314 1314 1385;
  Sub 1222 1222 1314; Mul 1314 1070 1222; Add 1290 1290 1314; Mul 1314 179 1651; Mul 1385 177 1210;
  Mul 1028 174 1266; Mul 1266 173 1266; Mul 1298 49 1266; Add 1028 1028 1298; Add 1028 1028 1544;
  Mul 1298 174 1280; Mul 1464 35 1266; Add 1298 1298 1464; Mul 1464 176 1508; Sub 1298 1298 1464;
  Mul 1464 62 1298; Mul 1269 176 1280; Mul 1561 19 1266; Mul 1259 174 1508; Sub 1561 1561 1259;
  Sub 1269 1269 1561; Mul 1561 48 1269; Sub 1464 1464 1561; Add 1464 1028 1464; Mul 1561 53 1464;
  Add 1385 1385 1561; Mul 1561 176 1092; Sub 1669 1669 1561; Mul 1561 19 1669].
Definition casadi_f0_670 : list instruction := [
  Mul 1259 180 1508; Sub 1561 1561 1259; Mul 1259 182 1280; Mul 1266 56 1266; Mul 1092 174 1092;
  Sub 1266 1266 1092; Sub 1266 1266 1288; Mul 1288 35 1266; Add 1259 1259 1288; Add 1561 1561 1259;
  Mul 1259 55 1298; Add 1561 1561 1259; Mul 1259 66 1561; Mul 1288 181 1035; Sub 1259 1259 1288;
  Sub 1385 1385 1259; Mul 1259 86 1298; Sub 1385 1385 1259; Mul 1259 9 1385; Add 1314 1314 1259;
  Mul 1259 181 1210; Mul 1561 53 1561; Add 1259 1259 1561; Mul 1464 66 1464; Mul 1561 177 1035;
  Sub 1464 1464 1561; Add 1259 1259 1464; Mul 1464 91 1298; Add 1259 1259 1464; Mul 1464 8 1259;
  Mul 1561 184 1636; Sub 1464 1464 1561; Add 1314 1314 1464; Mul 1298 102 1298; Mul 1464 66 1269;
  Mul 1561 178 1035; Sub 1464 1464 1561; Mul 1561 8 1464; Mul 1288 185 1636; Sub 1561 1561 1288;
  Mul 1288 187 1651; Mul 1092 178 1210; Mul 1399 53 1269; Add 1092 1092 1399; Mul 1399 9 1092;
  Add 1288 1288 1399; Add 1561 1561 1288; Mul 1561 108 1561; Sub 1298 1298 1561; Add 1314 1314 1298;
  Mul 1314 114 1314; Mul 1298 183 1612; Sub 1314 1314 1298; Mul 1298 186 1020; Mul 1385 8 1385;
  Mul 1561 179 1636; Sub 1385 1385 1561; Mul 1561 184 1651; Mul 1259 9 1259; Add 1561 1561 1259;
  Sub 1385 1385 1561; Mul 1561 185 1651; Mul 1259 9 1464; Add 1561 1561 1259; Mul 1259 8 1092;
  Mul 1288 187 1636; Sub 1259 1259 1288; Sub 1561 1561 1259; Mul 1259 108 1561; Add 1385 1385 1259;
  Mul 1385 113 1385; Add 1298 1298 1385; Sub 1314 1314 1298; Mul 1298 1059 1314; Add 1290 1290 1298;
  Mul 1298 199 1651; Mul 1385 196 1280; Mul 1259 197 1490; Mul 1288 195 1372; Sub 1259 1259 1288;
  Mul 1288 190 1372; Mul 1399 192 1490; Add 1288 1288 1399; Mul 1399 198 1288; Add 1259 1259 1399;
  Mul 1399 35 1259; Add 1385 1385 1399; Mul 1399 189 1508; Mul 1359 25 1288; Mul 1325 190 1490;
  Mul 1303 192 1372; Sub 1325 1325 1303; Mul 1303 32 1325; Add 1359 1359 1303; Mul 1303 19 1359;
  Add 1399 1399 1303; Sub 1385 1385 1399; Mul 1399 48 1288; Mul 1303 19 1325; Mul 1373 194 1508;
  Sub 1303 1303 1373; Mul 1373 55 1303; Add 1399 1399 1373; Sub 1385 1385 1399; Mul 1399 66 1385;
  Mul 1373 193 1035; Sub 1399 1399 1373; Mul 1373 202 1210; Mul 1650 198 1325; Mul 1236 197 1372;
  Mul 1208 195 1490; Add 1236 1236 1208; Sub 1650 1650 1236; Mul 1236 62 1303; Mul 1208 194 1280;
  Mul 1325 35 1325; Add 1208 1208 1325; Mul 1325 48 1208; Sub 1236 1236 1325; Add 1236 1650 1236;
  Mul 1325 53 1236; Add 1373 1373 1325; Add 1399 1399 1373; Mul 1373 86 1303; Sub 1399 1399 1373;
  Mul 1373 9 1399; Add 1298 1298 1373; Mul 1236 66 1236; Mul 1373 202 1035; Sub 1236 1236 1373;
  Mul 1373 193 1210; Mul 1385 53 1385; Add 1373 1373 1385; Sub 1236 1236 1373; Mul 1373 91 1303;
  Add 1236 1236 1373; Mul 1373 8 1236; Mul 1385 205 1636; Sub 1373 1373 1385; Add 1298 1298 1373;
  Mul 1303 102 1303; Mul 1373 66 1208; Mul 1385 203 1035; Sub 1373 1373 1385; Mul 1385 191 1210;
  Mul 1325 53 1288; Sub 1385 1385 1325; Add 1373 1373 1385; Mul 1385 8 1373].
Definition casadi_f0_671 : list instruction := [
  Mul 1325 206 1636; Sub 1385 1385 1325; Mul 1325 208 1651; Mul 1276 191 1035; Mul 1122 66 1288;
  Add 1276 1276 1122; Mul 1122 203 1210; Mul 1132 53 1208; Add 1122 1122 1132; Add 1276 1276 1122;
  Mul 1122 9 1276; Sub 1325 1325 1122; Sub 1385 1385 1325; Mul 1385 108 1385; Sub 1303 1303 1385;
  Add 1298 1298 1303; Mul 1298 114 1298; Mul 1303 204 1612; Sub 1298 1298 1303; Mul 1303 207 1020;
  Mul 1399 8 1399; Mul 1385 199 1636; Sub 1399 1399 1385; Mul 1385 205 1651; Mul 1236 9 1236;
  Add 1385 1385 1236; Sub 1399 1399 1385; Mul 1385 206 1651; Mul 1236 9 1373; Add 1385 1385 1236;
  Mul 1236 208 1636; Mul 1325 8 1276; Add 1236 1236 1325; Sub 1385 1385 1236; Mul 1236 108 1385;
  Add 1399 1399 1236; Mul 1399 113 1399; Add 1303 1303 1399; Sub 1298 1298 1303; Mul 1303 1043 1298;
  Add 1290 1290 1303; Div 1290 1290 1085; Mul 1303 1072 1290; Sub 1361 1361 1303; Mul 1303 211 1361;
  Mul 1399 216 1020; Arg 1236 2 0; Mul 1325 215 1236; Mul 1122 113 1325; Sub 1399 1399 1122; Mul 1122 218 1399;
  Mul 1132 114 1435; Mul 1267 0 1612; Sub 1132 1132 1267; Mul 1267 217 1132; Add 1122 1122 1267;
  Mul 1236 216 1236; Mul 1267 1 1236; Mul 1488 215 1463; Add 1267 1267 1488; Sub 1122 1122 1267;
  Mul 1267 0 1020; Mul 1488 113 1435; Add 1267 1267 1488; Mul 1488 220 1267; Mul 1443 114 1325;
  Mul 1513 216 1612; Add 1443 1443 1513; Mul 1513 221 1443; Sub 1488 1488 1513; Sub 1122 1122 1488;
  Mul 1488 214 1122; Mul 1513 213 1488; Mul 1513 212 1513; Mul 1076 225 1513; Mul 1271 114 1236;
  Mul 1113 215 1612; Sub 1271 1271 1113; Mul 1113 101 1271; Mul 1281 107 1325; Sub 1113 1113 1281;
  Mul 1281 223 1113; Add 1086 1076 1281; Mul 1130 216 1463; Mul 1139 1 1325; Sub 1130 1130 1139;
  Mul 1139 113 1236; Mul 1084 215 1020; Add 1139 1139 1084; Mul 1084 218 1139; Mul 1247 228 1132;
  Add 1084 1084 1247; Add 1130 1130 1084; Mul 1084 221 1271; Mul 1247 224 1267; Add 1084 1084 1247;
  Sub 1130 1130 1084; Mul 1084 214 1130; Mul 1247 213 1084; Mul 1247 212 1247; Mul 1649 231 1247;
  Mul 1667 101 1443; Mul 1557 107 1236; Add 1667 1667 1557; Mul 1557 230 1667; Sub 1649 1649 1557;
  Sub 1557 1086 1649; Add 1281 1281 1076; Sub 1649 1281 1649; Add 1076 1557 1649; Mul 1312 144 1020;
  Mul 1604 215 1312; Mul 1098 240 1236; Add 1604 1604 1098; Mul 1098 236 1612; Mul 1681 238 1020;
  Add 1098 1098 1681; Mul 1681 220 1098; Mul 1517 237 1443; Add 1681 1681 1517; Sub 1604 1604 1681;
  Mul 1681 115 1325; Add 1604 1604 1681; Mul 1681 212 1667; Mul 1517 242 1681; Mul 1094 101 1020;
  Mul 1518 241 1094; Add 1517 1517 1518; Add 1517 1604 1517; Mul 1518 244 1517; Mul 1410 213 1130;
  Mul 1547 243 1410; Add 1691 1518 1547; Mul 1226 237 1271; Mul 1207 224 1098; Sub 1226 1226 1207;
  Mul 1312 216 1312; Mul 1207 240 1325; Sub 1312 1312 1207; Sub 1226 1226 1312; Mul 1312 115 1236;
  Sub 1226 1226 1312; Mul 1312 212 1113; Mul 1312 242 1312; Mul 1207 247 1094; Sub 1312 1312 1207;
  Sub 1312 1226 1312; Mul 1207 249 1312; Mul 1593 213 1122].
Definition casadi_f0_672 : list instruction := [
  Mul 1560 248 1593; Add 1144 1207 1560; Sub 1360 1691 1144; Sub 1076 1076 1360; Add 1560 1560 1207;
  Add 1547 1547 1518; Sub 1518 1560 1547; Add 1076 1076 1518; Mul 1518 9 1399; Mul 1207 217 1651;
  Add 1518 1518 1207; Mul 1207 8 1443; Mul 1360 220 1636; Add 1207 1207 1360; Sub 1518 1518 1207;
  Mul 1207 254 1518; Mul 1360 218 1651; Mul 1383 9 1132; Add 1360 1360 1383; Mul 1383 8 1267; Mul 1617 221 1636;
  Sub 1383 1383 1617; Sub 1360 1360 1383; Mul 1383 253 1360; Add 1207 1207 1383; Mul 1399 8 1399;
  Mul 1383 217 1636; Sub 1399 1399 1383; Mul 1383 220 1651; Mul 1617 9 1443; Sub 1383 1383 1617;
  Sub 1399 1399 1383; Mul 1383 257 1399; Mul 1617 221 1651; Mul 1432 9 1267; Add 1617 1617 1432;
  Mul 1432 8 1132; Mul 1610 218 1636; Sub 1432 1432 1610; Add 1617 1617 1432; Mul 1432 256 1617;
  Add 1383 1383 1432; Mul 1432 259 1236; Sub 1610 1463 1497; Mul 1329 215 1610; Add 1432 1432 1329;
  Sub 1383 1383 1432; Add 1207 1207 1383; Mul 1383 213 1207; Mul 1432 276 1383; Mul 1329 114 1651;
  Mul 1571 9 1612; Sub 1329 1329 1571; Mul 1571 8 1020; Mul 1666 113 1636; Sub 1571 1571 1666;
  Sub 1329 1329 1571; Mul 1571 260 1329; Mul 1666 9 1020; Mul 1598 113 1651; Add 1666 1666 1598;
  Mul 1598 8 1612; Mul 1182 114 1636; Add 1598 1598 1182; Sub 1666 1666 1598; Mul 1598 263 1666;
  Add 1571 1571 1598; Mul 1598 265 1571; Mul 1182 8 1271; Mul 1341 224 1636; Sub 1182 1182 1341;
  Mul 1341 9 1139; Mul 1621 228 1651; Add 1341 1341 1621; Add 1182 1182 1341; Mul 1341 262 1182;
  Add 1598 1598 1341; Mul 1341 127 1329; Mul 1621 268 1666; Add 1341 1341 1621; Mul 1621 216 1341;
  Mul 1147 267 1325; Sub 1621 1621 1147; Add 1598 1598 1621; Mul 1621 135 1518; Mul 1147 95 1236;
  Add 1621 1621 1147; Sub 1598 1598 1621; Mul 1621 102 1271; Mul 1147 108 1325; Sub 1621 1621 1147;
  Mul 1147 79 1182; Mul 1647 8 1139; Mul 1338 228 1636; Sub 1647 1647 1338; Mul 1338 9 1271; Mul 1186 224 1651;
  Add 1338 1338 1186; Sub 1647 1647 1338; Mul 1338 85 1647; Mul 1186 81 1325; Sub 1338 1338 1186;
  Add 1147 1147 1338; Add 1147 1621 1147; Mul 1338 269 1147; Mul 1338 275 1338; Mul 1186 79 1329;
  Mul 1584 85 1666; Add 1186 1186 1584; Mul 1584 102 1020; Sub 1186 1186 1584; Mul 1283 272 1186;
  Add 1338 1338 1283; Sub 1338 1598 1338; Mul 1283 258 1338; Add 1109 1432 1283; Mul 1111 254 1182;
  Mul 1515 265 1360; Add 1111 1111 1515; Mul 1515 216 1610; Mul 1640 259 1325; Sub 1515 1515 1640;
  Mul 1640 257 1647; Mul 1209 273 1617; Add 1640 1640 1209; Add 1515 1515 1640; Add 1111 1111 1515;
  Mul 1515 213 1111; Mul 1640 284 1515; Mul 1209 253 1571; Mul 1422 262 1518; Add 1209 1209 1422;
  Mul 1341 215 1341; Mul 1422 267 1236; Add 1341 1341 1422; Sub 1209 1209 1341; Mul 1341 95 1325;
  Mul 1422 135 1182; Add 1341 1341 1422; Add 1209 1209 1341; Mul 1341 79 1518; Mul 1422 85 1399;
  Mul 1181 81 1236; Sub 1422 1422 1181; Add 1341 1341 1422; Mul 1422 102 1443; Mul 1181 108 1236;
  Add 1422 1422 1181; Sub 1341 1341 1422].
Definition casadi_f0_673 : list instruction := [
  Mul 1181 269 1341; Mul 1074 275 1181; Mul 1695 283 1186; Add 1074 1074 1695; Sub 1074 1209 1074;
  Mul 1695 279 1074; Add 1215 1640 1695; Sub 1032 1109 1215; Mul 1239 292 1186; Mul 1333 288 1666;
  Mul 1578 287 1651; Mul 1167 108 1132; Mul 1317 9 1167; Add 1578 1578 1317; Mul 1317 102 1463;
  Mul 1503 108 1267; Add 1317 1317 1503; Mul 1503 8 1317; Mul 1398 289 1636; Sub 1503 1503 1398;
  Sub 1578 1578 1503; Mul 1503 264 1578; Add 1333 1333 1503; Mul 1503 291 1329; Mul 1167 8 1167;
  Mul 1398 287 1636; Sub 1167 1167 1398; Mul 1398 289 1651; Mul 1317 9 1317; Add 1398 1398 1317;
  Add 1167 1167 1398; Mul 1398 261 1167; Add 1503 1503 1398; Sub 1333 1333 1503; Mul 1503 281 1111;
  Mul 1398 278 1422; Sub 1503 1503 1398; Mul 1398 255 1621; Mul 1317 270 1207; Add 1398 1398 1317;
  Sub 1503 1503 1398; Add 1333 1333 1503; Mul 1503 213 1333; Mul 1503 269 1503; Mul 1398 275 1503;
  Add 1317 1239 1398; Mul 1426 288 1399; Mul 1154 256 1578; Add 1426 1426 1154; Mul 1154 295 1236;
  Mul 1644 102 1132; Mul 1158 215 1644; Add 1154 1154 1158; Sub 1426 1426 1154; Mul 1154 291 1518;
  Mul 1158 253 1167; Add 1154 1154 1158; Sub 1426 1426 1154; Mul 1154 296 1621; Mul 1158 254 1329;
  Mul 1425 261 1360; Add 1158 1158 1425; Mul 1425 257 1666; Mul 1551 264 1617; Add 1425 1425 1551;
  Add 1158 1158 1425; Mul 1425 270 1158; Add 1154 1154 1425; Mul 1425 274 1111; Mul 1551 278 1584;
  Sub 1425 1425 1551; Sub 1154 1154 1425; Add 1426 1426 1154; Mul 1154 213 1426; Mul 1154 269 1154;
  Mul 1425 282 1154; Mul 1551 297 1341; Add 1582 1425 1551; Mul 1145 216 1644; Mul 1576 295 1325;
  Sub 1145 1145 1576; Mul 1576 288 1647; Mul 1663 273 1578; Add 1576 1576 1663; Add 1145 1145 1576;
  Mul 1576 291 1182; Mul 1663 265 1167; Add 1576 1576 1663; Sub 1145 1145 1576; Mul 1576 274 1207;
  Mul 1663 255 1584; Sub 1576 1576 1663; Mul 1663 281 1158; Mul 1451 296 1422; Sub 1663 1663 1451;
  Sub 1576 1576 1663; Add 1145 1145 1576; Mul 1576 213 1145; Mul 1576 269 1576; Mul 1663 271 1576;
  Mul 1451 300 1147; Add 1162 1663 1451; Add 1398 1398 1239; Add 1239 1162 1398; Add 1582 1582 1239;
  Sub 1639 1317 1582; Add 1551 1551 1425; Add 1451 1451 1663; Add 1317 1451 1317; Add 1551 1551 1317;
  Sub 1398 1398 1551; Add 1639 1639 1398; Add 1695 1695 1640; Add 1283 1283 1432; Sub 1432 1695 1283;
  Add 1639 1639 1432; Sub 1032 1032 1639; Mul 1639 66 1518; Mul 1432 253 1035; Sub 1639 1639 1432;
  Mul 1432 53 1399; Mul 1640 256 1210; Add 1432 1432 1640; Sub 1639 1639 1432; Mul 1432 308 1639;
  Mul 1640 66 1360; Mul 1398 254 1035; Sub 1640 1640 1398; Mul 1398 257 1210; Mul 1663 53 1617;
  Add 1398 1398 1663; Sub 1640 1640 1398; Mul 1398 304 1640; Add 1432 1432 1398; Mul 1398 53 1518;
  Mul 1663 253 1210; Add 1398 1398 1663; Mul 1663 66 1399; Mul 1425 256 1035; Sub 1663 1663 1425;
  Add 1398 1398 1663; Mul 1663 311 1398; Mul 1425 254 1210; Mul 1438 53 1360; Add 1425 1425 1438;
  Mul 1438 66 1617; Mul 1146 257 1035; Sub 1438 1438 1146; Add 1425 1425 1438].
Definition casadi_f0_674 : list instruction := [
  Mul 1438 310 1425; Add 1663 1663 1438; Mul 1438 313 1236; Add 1146 1131 1610; Mul 1417 215 1146;
  Add 1438 1438 1417; Sub 1663 1663 1438; Add 1432 1432 1663; Mul 1663 213 1432; Mul 1438 330 1663;
  Mul 1417 66 1329; Mul 1539 261 1035; Sub 1417 1417 1539; Mul 1539 53 1666; Mul 1670 264 1210;
  Add 1539 1539 1670; Sub 1417 1417 1539; Mul 1539 314 1417; Mul 1670 53 1329; Mul 1511 261 1210;
  Add 1670 1670 1511; Mul 1511 66 1666; Mul 1349 264 1035; Sub 1511 1511 1349; Add 1670 1670 1511;
  Mul 1511 317 1670; Add 1539 1539 1511; Mul 1511 319 1539; Mul 1349 66 1182; Mul 1327 265 1035;
  Sub 1349 1349 1327; Mul 1327 53 1647; Mul 1577 273 1210; Add 1327 1327 1577; Sub 1349 1349 1327;
  Mul 1327 316 1349; Add 1511 1511 1327; Mul 1327 128 1417; Mul 1577 322 1670; Add 1327 1327 1577;
  Mul 1577 216 1327; Mul 1270 321 1325; Sub 1577 1577 1270; Add 1511 1511 1577; Mul 1577 131 1639;
  Mul 1270 68 1236; Add 1577 1577 1270; Sub 1511 1511 1577; Mul 1577 91 1182; Mul 1270 86 1647;
  Add 1577 1577 1270; Add 1577 1621 1577; Mul 1270 61 1349; Mul 1434 53 1182; Mul 1643 265 1210;
  Add 1434 1434 1643; Mul 1643 66 1647; Mul 1257 273 1035; Sub 1643 1643 1257; Add 1434 1434 1643;
  Mul 1643 54 1434; Mul 1257 47 1325; Sub 1643 1643 1257; Add 1270 1270 1643; Add 1270 1577 1270;
  Mul 1643 323 1270; Mul 1643 329 1643; Mul 1257 91 1329; Mul 1666 86 1666; Add 1257 1257 1666;
  Sub 1257 1257 1584; Mul 1666 61 1417; Mul 1161 54 1670; Add 1666 1666 1161; Add 1666 1257 1666;
  Mul 1161 326 1666; Add 1643 1643 1161; Sub 1643 1511 1643; Mul 1161 312 1643; Add 1679 1438 1161;
  Mul 1233 308 1349; Mul 1589 319 1640; Add 1233 1233 1589; Mul 1589 216 1146; Mul 1263 313 1325;
  Sub 1589 1589 1263; Mul 1263 311 1434; Mul 1668 327 1425; Add 1263 1263 1668; Add 1589 1589 1263;
  Add 1233 1233 1589; Mul 1589 213 1233; Mul 1263 338 1589; Mul 1668 304 1539; Mul 1545 316 1639;
  Add 1668 1668 1545; Mul 1327 215 1327; Mul 1545 321 1236; Add 1327 1327 1545; Sub 1668 1668 1327;
  Mul 1327 68 1325; Mul 1545 131 1349; Add 1327 1327 1545; Add 1668 1668 1327; Mul 1327 91 1518;
  Mul 1399 86 1399; Add 1327 1327 1399; Sub 1327 1327 1422; Mul 1399 61 1639; Mul 1545 54 1398;
  Mul 1253 47 1236; Sub 1545 1545 1253; Add 1399 1399 1545; Add 1399 1327 1399; Mul 1545 323 1399;
  Mul 1253 329 1545; Mul 1609 337 1666; Add 1253 1253 1609; Sub 1253 1668 1253; Mul 1609 333 1253;
  Add 1529 1263 1609; Sub 1602 1679 1529; Mul 1566 346 1666; Mul 1099 342 1417; Mul 1252 86 1610;
  Sub 1252 1252 1167; Mul 1167 66 1252; Mul 1110 341 1035; Sub 1167 1167 1110; Mul 1110 343 1210;
  Mul 1610 91 1610; Sub 1578 1578 1610; Mul 1610 53 1578; Add 1110 1110 1610; Sub 1167 1167 1110;
  Mul 1110 315 1167; Add 1099 1099 1110; Mul 1110 345 1670; Mul 1610 341 1210; Mul 1252 53 1252;
  Add 1610 1610 1252; Mul 1578 66 1578; Mul 1252 343 1035; Sub 1578 1578 1252; Add 1610 1610 1578;
  Mul 1578 318 1610; Add 1110 1110 1578; Add 1099 1099 1110; Mul 1110 332 1327].
Definition casadi_f0_675 : list instruction := [
  Mul 1578 335 1233; Add 1110 1110 1578; Mul 1578 309 1577; Mul 1252 324 1432; Add 1578 1578 1252;
  Sub 1110 1110 1578; Add 1099 1099 1110; Mul 1110 213 1099; Mul 1110 323 1110; Mul 1578 329 1110;
  Add 1252 1566 1578; Mul 1121 342 1639; Mul 1391 304 1167; Add 1121 1121 1391; Mul 1391 345 1398;
  Mul 1313 310 1610; Add 1391 1391 1313; Mul 1313 350 1236; Mul 1360 86 1360; Mul 1617 91 1617;
  Sub 1360 1360 1617; Sub 1644 1644 1360; Mul 1360 215 1644; Add 1313 1313 1360; Sub 1391 1391 1313;
  Add 1121 1121 1391; Mul 1391 349 1577; Mul 1313 308 1417; Mul 1360 315 1640; Add 1313 1313 1360;
  Mul 1360 311 1670; Mul 1617 318 1425; Add 1360 1360 1617; Add 1313 1313 1360; Mul 1360 324 1313;
  Add 1391 1391 1360; Mul 1360 332 1257; Mul 1617 328 1233; Add 1360 1360 1617; Sub 1391 1391 1360;
  Add 1121 1121 1391; Mul 1391 213 1121; Mul 1391 323 1391; Mul 1360 336 1391; Mul 1617 351 1399;
  Add 1177 1360 1617; Mul 1525 342 1349; Mul 1275 319 1167; Add 1525 1525 1275; Mul 1275 216 1644;
  Mul 1193 350 1325; Sub 1275 1275 1193; Mul 1193 345 1434; Mul 1256 327 1610; Add 1193 1193 1256;
  Add 1275 1275 1193; Add 1525 1525 1275; Mul 1275 309 1257; Mul 1193 328 1432; Add 1275 1275 1193;
  Mul 1193 349 1327; Mul 1256 335 1313; Add 1193 1193 1256; Sub 1275 1275 1193; Add 1525 1525 1275;
  Mul 1275 213 1525; Mul 1275 323 1275; Mul 1193 325 1275; Mul 1256 354 1270; Add 1496 1193 1256;
  Add 1578 1578 1566; Add 1566 1496 1578; Add 1177 1177 1566; Sub 1025 1252 1177; Add 1617 1617 1360;
  Add 1256 1256 1193; Add 1252 1256 1252; Add 1617 1617 1252; Sub 1578 1578 1617; Add 1025 1025 1578;
  Add 1609 1609 1263; Add 1161 1161 1438; Sub 1438 1609 1161; Add 1025 1025 1438; Sub 1602 1602 1025;
  Mul 1025 19 1639; Mul 1438 304 1508; Sub 1025 1025 1438; Mul 1438 35 1236; Mul 1263 215 1280;
  Add 1438 1438 1263; Add 1025 1025 1438; Mul 1438 362 1025; Mul 1263 19 1640; Mul 1578 308 1508;
  Sub 1263 1263 1578; Mul 1578 313 1280; Mul 1193 35 1146; Add 1578 1578 1193; Sub 1263 1263 1578;
  Mul 1578 358 1263; Add 1438 1438 1578; Mul 1578 35 1639; Mul 1193 304 1280; Add 1578 1578 1193;
  Mul 1193 19 1236; Mul 1360 215 1508; Sub 1193 1193 1360; Sub 1578 1578 1193; Mul 1193 365 1578;
  Mul 1360 308 1280; Mul 1126 35 1640; Add 1360 1360 1126; Mul 1126 19 1146; Mul 1150 313 1508;
  Sub 1126 1126 1150; Add 1360 1360 1126; Mul 1126 364 1360; Add 1193 1193 1126; Mul 1126 367 1398;
  Sub 1150 1425 1071; Mul 1597 310 1150; Add 1126 1126 1597; Add 1193 1193 1126; Add 1438 1438 1193;
  Mul 1193 213 1438; Mul 1126 385 1193; Mul 1597 19 1417; Mul 1125 315 1508; Sub 1597 1597 1125;
  Mul 1125 368 1597; Mul 1235 35 1417; Mul 1216 315 1280; Add 1235 1235 1216; Mul 1216 39 1235;
  Mul 1183 373 1670; Add 1216 1216 1183; Add 1125 1125 1216; Mul 1216 372 1125; Mul 1183 19 1349;
  Mul 1696 319 1508; Sub 1183 1183 1696; Mul 1696 216 1280; Mul 1423 35 1325; Sub 1696 1696 1423;
  Sub 1183 1183 1696; Mul 1696 370 1183; Add 1216 1216 1696; Mul 1696 39 1597].
Definition casadi_f0_676 : list instruction := [
  Mul 1423 376 1235; Add 1696 1696 1423; Mul 1423 377 1696; Mul 1673 35 1349; Mul 1274 319 1280;
  Add 1673 1673 1274; Mul 1274 19 1325; Mul 1671 216 1508; Add 1274 1274 1671; Sub 1673 1673 1274;
  Mul 1274 375 1673; Add 1423 1423 1274; Add 1216 1216 1423; Mul 1423 69 1578; Add 1216 1216 1423;
  Mul 1423 62 1349; Mul 1274 55 1434; Mul 1671 48 1325; Sub 1274 1274 1671; Add 1423 1423 1274;
  Add 1423 1577 1423; Mul 1274 380 1183; Mul 1671 24 1673; Mul 1337 31 1434; Add 1671 1671 1337;
  Add 1274 1274 1671; Add 1274 1423 1274; Mul 1671 378 1274; Mul 1671 384 1671; Mul 1337 62 1417;
  Mul 1112 55 1670; Add 1337 1337 1112; Add 1337 1257 1337; Mul 1112 380 1597; Mul 1694 24 1235;
  Mul 1179 31 1670; Add 1694 1694 1179; Add 1112 1112 1694; Add 1112 1337 1112; Mul 1694 382 1112;
  Add 1671 1671 1694; Sub 1671 1216 1671; Mul 1694 366 1671; Add 1179 1126 1694; Mul 1613 362 1183;
  Mul 1595 372 1263; Add 1613 1613 1595; Mul 1595 365 1673; Mul 1440 377 1360; Add 1595 1595 1440;
  Mul 1440 367 1434; Mul 1471 327 1150; Add 1440 1440 1471; Add 1595 1595 1440; Add 1613 1613 1595;
  Mul 1595 213 1613; Mul 1440 393 1595; Mul 1471 358 1125; Mul 1501 370 1025; Add 1471 1471 1501;
  Mul 1501 364 1696; Mul 1652 375 1578; Add 1501 1501 1652; Add 1471 1471 1501; Mul 1501 69 1673;
  Sub 1471 1471 1501; Mul 1501 62 1639; Mul 1652 55 1398; Mul 1701 48 1236; Sub 1652 1652 1701;
  Add 1501 1501 1652; Add 1501 1327 1501; Mul 1652 380 1025; Mul 1701 24 1578; Mul 1429 31 1398;
  Add 1701 1701 1429; Add 1652 1652 1701; Add 1652 1501 1652; Mul 1701 378 1652; Mul 1429 384 1701;
  Mul 1622 392 1112; Add 1429 1429 1622; Sub 1429 1471 1429; Mul 1622 388 1429; Add 1465 1440 1622;
  Sub 1646 1179 1465; Mul 1393 401 1112; Mul 1170 397 1597; Mul 1319 48 1425; Mul 1351 55 1146;
  Sub 1319 1319 1351; Sub 1167 1167 1319; Mul 1319 19 1167; Mul 1351 396 1508; Sub 1319 1319 1351;
  Mul 1351 398 1280; Mul 1573 55 1640; Mul 1425 62 1425; Sub 1573 1573 1425; Sub 1644 1644 1573;
  Mul 1573 35 1644; Add 1351 1351 1573; Sub 1319 1319 1351; Mul 1351 369 1319; Add 1170 1170 1351;
  Mul 1351 400 1235; Mul 1573 396 1280; Mul 1167 35 1167; Add 1573 1573 1167; Mul 1644 19 1644;
  Mul 1167 398 1508; Sub 1644 1644 1167; Add 1573 1573 1644; Mul 1644 371 1573; Add 1351 1351 1644;
  Mul 1644 402 1670; Mul 1146 62 1146; Mul 1640 48 1640; Sub 1146 1146 1640; Sub 1610 1610 1146;
  Mul 1146 318 1610; Add 1644 1644 1146; Add 1351 1351 1644; Add 1170 1170 1351; Mul 1351 387 1501;
  Mul 1644 390 1613; Add 1351 1351 1644; Mul 1644 363 1423; Mul 1146 379 1438; Add 1644 1644 1146;
  Sub 1351 1351 1644; Add 1170 1170 1351; Mul 1351 213 1170; Mul 1351 378 1351; Mul 1644 384 1351;
  Add 1146 1393 1644; Mul 1640 397 1025; Mul 1167 358 1319; Add 1640 1640 1167; Mul 1167 400 1578;
  Mul 1425 364 1573; Add 1167 1167 1425; Mul 1425 402 1398; Mul 1641 310 1610; Add 1425 1425 1641;
  Add 1167 1167 1425; Add 1640 1640 1167; Mul 1167 405 1423; Mul 1425 362 1597].
Definition casadi_f0_677 : list instruction := [
  Mul 1641 369 1263; Add 1425 1425 1641; Mul 1641 365 1235; Mul 1480 371 1360; Add 1641 1641 1480;
  Mul 1480 367 1670; Mul 1164 318 1150; Add 1480 1480 1164; Add 1641 1641 1480; Add 1425 1425 1641;
  Mul 1641 379 1425; Add 1167 1167 1641; Mul 1641 387 1337; Mul 1480 383 1613; Add 1641 1641 1480;
  Sub 1167 1167 1641; Add 1640 1640 1167; Mul 1167 213 1640; Mul 1167 378 1167; Mul 1641 391 1167;
  Mul 1480 406 1652; Add 1164 1641 1480; Mul 1232 397 1183; Mul 1230 372 1319; Add 1232 1232 1230;
  Mul 1230 400 1673; Mul 1127 377 1573; Add 1230 1230 1127; Mul 1127 402 1434; Mul 1077 327 1610;
  Add 1127 1127 1077; Add 1230 1230 1127; Add 1232 1232 1230; Mul 1230 363 1337; Mul 1127 383 1438;
  Add 1230 1230 1127; Mul 1127 405 1501; Mul 1077 390 1425; Add 1127 1127 1077; Sub 1230 1230 1127;
  Add 1232 1232 1230; Mul 1230 213 1232; Mul 1230 378 1230; Mul 1127 381 1230; Mul 1077 409 1274;
  Add 1436 1127 1077; Add 1644 1644 1393; Add 1393 1436 1644; Add 1164 1164 1393; Sub 1241 1146 1164;
  Add 1480 1480 1641; Add 1077 1077 1127; Add 1146 1077 1146; Add 1480 1480 1146; Sub 1644 1644 1480;
  Add 1241 1241 1644; Add 1622 1622 1440; Add 1694 1694 1126; Sub 1126 1622 1694; Add 1241 1241 1126;
  Sub 1646 1646 1241; Mul 1241 413 1025; Sub 1126 1263 1600; Mul 1440 358 1126; Add 1241 1241 1440;
  Mul 1440 16 1578; Mul 1644 364 1372; Sub 1440 1440 1644; Mul 1644 15 1398; Mul 1127 310 1490;
  Add 1644 1644 1127; Sub 1440 1440 1644; Mul 1644 419 1440; Mul 1127 16 1360; Mul 1641 365 1372;
  Sub 1127 1127 1641; Mul 1641 367 1490; Mul 1572 15 1150; Add 1641 1641 1572; Sub 1127 1127 1641;
  Mul 1641 418 1127; Add 1644 1644 1641; Mul 1641 15 1578; Mul 1572 364 1490; Add 1641 1641 1572;
  Mul 1572 16 1398; Mul 1103 310 1372; Sub 1572 1572 1103; Add 1641 1641 1572; Mul 1572 422 1641;
  Mul 1103 365 1490; Mul 1523 15 1360; Add 1103 1103 1523; Mul 1523 16 1150; Mul 1295 367 1372;
  Sub 1523 1523 1295; Add 1103 1103 1523; Mul 1523 421 1103; Add 1572 1572 1523; Add 1644 1644 1572;
  Add 1241 1241 1644; Mul 1644 213 1241; Mul 1572 439 1644; Mul 1523 423 1597; Mul 1295 16 1235;
  Mul 1105 371 1372; Sub 1295 1295 1105; Mul 1105 15 1670; Mul 1687 318 1490; Add 1105 1105 1687;
  Sub 1295 1295 1105; Mul 1105 40 1295; Mul 1687 15 1235; Mul 1500 371 1490; Add 1687 1687 1500;
  Mul 1500 16 1670; Mul 1368 318 1372; Sub 1500 1500 1368; Add 1687 1687 1500; Mul 1500 42 1687;
  Add 1105 1105 1500; Add 1523 1523 1105; Mul 1105 372 1523; Mul 1500 424 1183; Add 1105 1105 1500;
  Mul 1500 40 1597; Mul 1368 14 1295; Mul 1374 18 1687; Add 1368 1368 1374; Add 1500 1500 1368;
  Mul 1368 429 1500; Mul 1374 16 1673; Mul 1474 377 1372; Sub 1374 1374 1474; Mul 1474 15 1434;
  Mul 1311 327 1490; Add 1474 1474 1311; Sub 1374 1374 1474; Mul 1474 428 1374; Add 1368 1368 1474;
  Add 1105 1105 1368; Mul 1368 43 1440; Mul 1474 431 1025; Sub 1368 1368 1474; Add 1105 1105 1368;
  Mul 1368 198 1183; Mul 1474 25 1673; Mul 1311 32 1434; Add 1474 1474 1311].
Definition casadi_f0_678 : list instruction := [
  Add 1368 1368 1474; Add 1368 1423 1368; Mul 1474 433 1183; Mul 1311 26 1374; Mul 1240 15 1673;
  Mul 1221 377 1490; Add 1240 1240 1221; Mul 1221 16 1434; Mul 1255 327 1372; Sub 1221 1221 1255;
  Add 1240 1240 1221; Mul 1221 28 1240; Add 1311 1311 1221; Add 1474 1474 1311; Add 1474 1368 1474;
  Mul 1311 430 1474; Mul 1311 438 1311; Mul 1221 198 1597; Mul 1255 25 1235; Mul 1211 32 1670;
  Add 1255 1255 1211; Add 1221 1221 1255; Add 1221 1337 1221; Mul 1255 433 1597; Mul 1211 26 1295;
  Mul 1512 28 1687; Add 1211 1211 1512; Add 1255 1255 1211; Add 1255 1221 1255; Mul 1211 435 1255;
  Add 1311 1311 1211; Sub 1311 1105 1311; Mul 1211 420 1311; Add 1512 1572 1211; Mul 1261 413 1183;
  Mul 1227 372 1126; Add 1261 1261 1227; Mul 1227 419 1374; Mul 1224 429 1127; Add 1227 1227 1224;
  Mul 1224 422 1240; Mul 1142 436 1103; Add 1224 1224 1142; Add 1227 1227 1224; Add 1261 1261 1227;
  Mul 1227 213 1261; Mul 1224 447 1227; Mul 1142 358 1523; Mul 1685 424 1025; Add 1142 1142 1685;
  Mul 1685 418 1500; Mul 1367 428 1440; Add 1685 1685 1367; Add 1142 1142 1685; Mul 1685 43 1374;
  Mul 1367 431 1183; Sub 1685 1685 1367; Sub 1142 1142 1685; Mul 1685 198 1025; Mul 1367 25 1578;
  Mul 1568 32 1398; Add 1367 1367 1568; Add 1685 1685 1367; Add 1685 1501 1685; Mul 1367 433 1025;
  Mul 1568 26 1440; Mul 1659 28 1641; Add 1568 1568 1659; Add 1367 1367 1568; Add 1367 1685 1367;
  Mul 1568 430 1367; Mul 1659 438 1568; Mul 1199 446 1255; Add 1659 1659 1199; Sub 1659 1142 1659;
  Mul 1199 442 1659; Add 1324 1224 1199; Sub 1339 1512 1324; Mul 1564 455 1255; Mul 1470 450 1597;
  Mul 1618 25 1150; Mul 1217 32 1360; Sub 1618 1618 1217; Sub 1319 1319 1618; Mul 1618 369 1319;
  Add 1470 1470 1618; Mul 1618 453 1295; Mul 1217 32 1263; Mul 1150 198 1150; Sub 1217 1217 1150;
  Sub 1573 1573 1217; Mul 1217 16 1573; Mul 1150 452 1372; Sub 1217 1217 1150; Mul 1150 454 1490;
  Mul 1360 198 1360; Mul 1263 25 1263; Sub 1360 1360 1263; Sub 1610 1610 1360; Mul 1360 15 1610;
  Add 1150 1150 1360; Sub 1217 1217 1150; Mul 1150 425 1217; Add 1618 1618 1150; Mul 1150 456 1687;
  Mul 1360 452 1490; Mul 1573 15 1573; Add 1360 1360 1573; Mul 1610 16 1610; Mul 1573 454 1372;
  Sub 1610 1610 1573; Add 1360 1360 1610; Mul 1610 427 1360; Add 1150 1150 1610; Add 1618 1618 1150;
  Add 1470 1470 1618; Mul 1618 441 1685; Mul 1150 444 1261; Add 1618 1618 1150; Mul 1150 417 1368;
  Mul 1610 432 1241; Add 1150 1150 1610; Sub 1618 1618 1150; Add 1470 1470 1618; Mul 1618 213 1470;
  Mul 1618 430 1618; Mul 1150 438 1618; Add 1610 1564 1150; Mul 1573 450 1025; Mul 1263 358 1319;
  Add 1573 1573 1263; Mul 1263 453 1440; Mul 1683 418 1217; Add 1263 1263 1683; Mul 1641 456 1641;
  Mul 1683 421 1360; Add 1641 1641 1683; Add 1263 1263 1641; Add 1573 1573 1263; Mul 1263 459 1368;
  Mul 1641 413 1597; Mul 1126 369 1126; Add 1641 1641 1126; Mul 1126 419 1295; Mul 1127 425 1127;
  Add 1126 1126 1127; Mul 1687 422 1687; Mul 1103 427 1103; Add 1687 1687 1103].
Definition casadi_f0_679 : list instruction := [
  Add 1126 1126 1687; Add 1641 1641 1126; Mul 1126 432 1641; Add 1263 1263 1126; Mul 1126 441 1221;
  Mul 1687 437 1261; Add 1126 1126 1687; Sub 1263 1263 1126; Add 1573 1573 1263; Mul 1263 213 1573;
  Mul 1263 430 1263; Mul 1126 445 1263; Mul 1687 460 1367; Add 1103 1126 1687; Mul 1127 450 1183;
  Mul 1319 372 1319; Add 1127 1127 1319; Mul 1319 453 1374; Mul 1217 429 1217; Add 1319 1319 1217;
  Mul 1217 456 1240; Mul 1360 436 1360; Add 1217 1217 1360; Add 1319 1319 1217; Add 1127 1127 1319;
  Mul 1319 417 1221; Mul 1217 437 1241; Add 1319 1319 1217; Mul 1217 459 1685; Mul 1360 444 1641;
  Add 1217 1217 1360; Sub 1319 1319 1217; Add 1127 1127 1319; Mul 1319 213 1127; Mul 1319 430 1319;
  Mul 1217 434 1319; Mul 1360 463 1474; Add 1683 1217 1360; Add 1150 1150 1564; Add 1564 1683 1150;
  Add 1103 1103 1564; Sub 1489 1610 1103; Add 1687 1687 1126; Add 1360 1360 1217; Add 1610 1360 1610;
  Add 1687 1687 1610; Sub 1150 1150 1687; Add 1489 1489 1150; Add 1199 1199 1224; Add 1211 1211 1572;
  Sub 1572 1199 1211; Add 1489 1489 1572; Sub 1339 1339 1489; Add 1646 1646 1339; Add 1602 1602 1646;
  Add 1032 1032 1602; Add 1076 1076 1032; Mul 1076 0 1076; Mul 1032 235 1435; Add 1076 1076 1032;
  Mul 1571 261 1571; Mul 1032 262 1329; Add 1571 1571 1032; Mul 1539 315 1539; Mul 1032 316 1417;
  Add 1539 1539 1032; Mul 1125 369 1125; Mul 1032 370 1597; Add 1125 1125 1032; Mul 1696 371 1696;
  Mul 1032 375 1235; Add 1696 1696 1032; Add 1125 1125 1696; Mul 1523 369 1523; Mul 1696 424 1597;
  Add 1523 1523 1696; Mul 1500 425 1500; Mul 1696 428 1295; Add 1500 1500 1696; Add 1523 1523 1500;
  Add 1500 1125 1523; Sub 1696 1652 1367; Mul 1032 480 1696; Sub 1602 1274 1474; Mul 1489 1197 1602;
  Add 1572 1032 1489; Mul 1572 20 1572; Add 1500 1500 1572; Add 1572 1539 1500; Mul 1224 485 1652;
  Mul 1150 50 1367; Add 1224 1224 1150; Sub 1150 1399 1224; Mul 1217 487 1150; Mul 1126 485 1274;
  Mul 1607 50 1474; Add 1126 1126 1607; Sub 1607 1270 1126; Mul 1326 1286 1607; Add 1655 1217 1326;
  Mul 1655 37 1655; Add 1572 1572 1655; Add 1655 1571 1572; Mul 1536 493 1399; Mul 1540 83 1224;
  Add 1536 1536 1540; Sub 1540 1341 1536; Mul 1676 495 1540; Mul 1506 493 1270; Mul 1475 83 1126;
  Add 1506 1506 1475; Sub 1475 1147 1506; Mul 1188 1294 1475; Add 1087 1676 1188; Mul 1087 80 1087;
  Add 1655 1655 1087; Mul 1087 237 1020; Mul 1098 113 1098; Sub 1087 1087 1098; Sub 1098 1655 1087;
  Mul 1278 501 1147; Mul 1116 104 1506; Add 1278 1278 1116; Sub 1116 1113 1278; Mul 1047 1299 1116;
  Mul 1300 501 1341; Mul 1323 104 1536; Add 1300 1300 1323; Add 1323 1667 1300; Mul 1590 503 1323;
  Sub 1476 1047 1590; Mul 1476 100 1476; Add 1098 1098 1476; Mul 1098 508 1098; Mul 1476 216 1122;
  Mul 1053 219 1325; Sub 1476 1476 1053; Mul 1053 215 1130; Mul 1552 227 1236; Add 1053 1053 1552;
  Add 1476 1476 1053; Mul 1053 500 1476; Add 1098 1098 1053; Add 1053 1471 1142; Mul 1696 20 1696;
  Mul 1552 512 1696; Sub 1559 1112 1255; Mul 1542 511 1559; Add 1552 1552 1542].
Definition casadi_f0_680 : list instruction := [
  Sub 1053 1053 1552; Add 1552 1668 1053; Mul 1150 37 1150; Mul 1542 516 1150; Mul 1016 485 1112;
  Mul 1581 50 1255; Add 1016 1016 1581; Sub 1581 1666 1016; Mul 1468 514 1581; Add 1542 1542 1468;
  Sub 1552 1552 1542; Add 1542 1209 1552; Mul 1540 80 1540; Mul 1468 520 1540; Mul 1599 493 1666;
  Mul 1148 83 1016; Add 1599 1599 1148; Sub 1148 1186 1599; Mul 1114 518 1148; Add 1468 1468 1114;
  Sub 1542 1542 1468; Add 1468 1604 1542; Mul 1323 100 1323; Mul 1114 524 1323; Mul 1524 501 1186;
  Mul 1415 104 1599; Add 1524 1524 1415; Add 1415 1094 1524; Mul 1556 522 1415; Add 1114 1114 1556;
  Add 1468 1468 1114; Mul 1114 526 1468; Mul 1556 221 1020; Mul 1267 113 1267; Add 1556 1556 1267;
  Mul 1132 114 1132; Mul 1267 218 1612; Sub 1132 1132 1267; Add 1556 1556 1132; Mul 1132 216 1556;
  Mul 1267 525 1325; Sub 1132 1132 1267; Mul 1267 521 1132; Add 1114 1114 1267; Add 1267 1216 1105;
  Mul 1642 20 1602; Mul 1642 512 1642; Mul 1460 529 1559; Add 1642 1642 1460; Sub 1267 1267 1642;
  Add 1642 1511 1267; Mul 1460 37 1607; Mul 1460 516 1460; Mul 1441 531 1581; Add 1460 1460 1441;
  Sub 1642 1642 1460; Add 1460 1598 1642; Mul 1441 80 1475; Mul 1441 520 1441; Mul 1543 533 1148;
  Add 1441 1441 1543; Sub 1460 1460 1441; Add 1441 1226 1460; Mul 1543 100 1116; Mul 1543 524 1543;
  Mul 1456 535 1415; Sub 1543 1543 1456; Sub 1441 1441 1543; Mul 1543 536 1441; Mul 1456 215 1556;
  Mul 1251 525 1236; Add 1456 1456 1251; Mul 1251 534 1456; Add 1543 1543 1251; Add 1114 1114 1543;
  Sub 1098 1098 1114; Mul 1114 120 1300; Mul 1543 527 1667; Sub 1114 1114 1543; Mul 1543 539 1114;
  Mul 1251 120 1524; Mul 1382 527 1094; Sub 1251 1251 1382; Mul 1382 526 1251; Mul 1462 538 1132;
  Add 1382 1382 1462; Mul 1462 508 1114; Mul 1048 537 1476; Add 1462 1462 1048; Add 1382 1382 1462;
  Mul 1462 540 1556; Mul 1048 214 1325; Mul 1246 525 1048; Sub 1462 1462 1246; Sub 1382 1382 1462;
  Mul 1382 141 1382; Mul 1246 537 1382; Add 1543 1543 1246; Mul 1246 527 1113; Mul 1265 120 1278;
  Add 1246 1246 1265; Mul 1265 546 1246; Mul 1658 544 1556; Mul 1157 214 1236; Mul 1369 525 1157;
  Add 1658 1658 1369; Mul 1369 508 1246; Mul 1608 543 1476; Add 1369 1369 1608; Mul 1608 536 1251;
  Mul 1537 538 1456; Add 1608 1608 1537; Add 1369 1369 1608; Sub 1369 1658 1369; Mul 1369 141 1369;
  Mul 1608 543 1369; Add 1265 1265 1608; Sub 1543 1543 1265; Add 1098 1098 1543; Mul 1543 553 1593;
  Mul 1265 238 1271; Mul 1139 236 1139; Mul 1608 144 1325; Sub 1139 1139 1608; Add 1265 1265 1139;
  Mul 1139 224 1265; Mul 1608 542 1271; Add 1139 1139 1608; Mul 1271 144 1271; Mul 1608 549 1325;
  Sub 1271 1271 1608; Mul 1608 216 1271; Mul 1537 548 1325; Sub 1608 1608 1537; Add 1139 1139 1608;
  Mul 1608 1334 1667; Mul 1537 1336 1094; Add 1586 1608 1537; Mul 1586 212 1586; Sub 1586 1139 1586;
  Mul 1365 249 1586; Add 1541 1543 1365; Mul 1284 556 1410; Mul 1265 220 1265; Mul 1443 542 1443;
  Sub 1265 1265 1443; Mul 1271 215 1271; Mul 1443 548 1236; Add 1271 1271 1443].
Definition casadi_f0_681 : list instruction := [
  Sub 1265 1265 1271; Mul 1271 241 1113; Mul 1681 225 1681; Sub 1271 1271 1681; Sub 1271 1265 1271;
  Mul 1681 244 1271; Add 1443 1284 1681; Sub 1541 1541 1443; Mul 1443 242 1513; Mul 1175 223 1094;
  Sub 1443 1443 1175; Mul 1175 1342 1113; Sub 1608 1175 1608; Mul 1608 212 1608; Sub 1608 1608 1087;
  Mul 1616 249 1608; Mul 1345 551 1593; Add 1494 1616 1345; Mul 1686 560 1517; Mul 1580 213 1556;
  Mul 1115 243 1580; Add 1352 1686 1115; Sub 1494 1494 1352; Add 1494 1443 1494; Sub 1541 1541 1494;
  Sub 1494 1087 1139; Mul 1352 219 1494; Mul 1185 557 1122; Add 1352 1352 1185; Mul 1185 227 1265;
  Mul 1502 555 1130; Add 1185 1185 1502; Add 1352 1352 1185; Mul 1185 525 1604; Mul 1502 239 1556;
  Add 1185 1185 1502; Add 1352 1352 1185; Mul 1185 340 1113; Mul 1502 231 1130; Mul 1528 227 1667;
  Sub 1502 1502 1528; Mul 1528 219 1113; Mul 1223 225 1122; Add 1528 1528 1223; Sub 1502 1502 1528;
  Mul 1502 212 1502; Mul 1528 225 1502; Add 1185 1185 1528; Mul 1528 242 1122; Mul 1223 219 1094;
  Sub 1528 1528 1223; Mul 1223 231 1556; Mul 1697 525 1667; Sub 1223 1223 1697; Sub 1528 1528 1223;
  Sub 1528 1488 1528; Mul 1528 212 1528; Mul 1223 242 1528; Mul 1697 559 1094; Sub 1223 1223 1697;
  Add 1185 1185 1223; Sub 1352 1352 1185; Mul 1352 213 1352; Sub 1541 1541 1352; Mul 1185 567 1383;
  Mul 1223 260 1182; Mul 1697 263 1647; Mul 1200 127 1325; Sub 1697 1697 1200; Add 1223 1223 1697;
  Mul 1697 265 1223; Mul 1200 547 1182; Add 1697 1697 1200; Mul 1182 127 1182; Mul 1647 268 1647;
  Mul 1200 563 1325; Sub 1647 1647 1200; Add 1182 1182 1647; Mul 1647 216 1182; Mul 1200 562 1325;
  Sub 1647 1647 1200; Add 1697 1697 1647; Mul 1647 1138 1341; Mul 1200 1357 1186; Add 1038 1647 1200;
  Mul 1038 269 1038; Add 1038 1697 1038; Mul 1159 258 1038; Add 1558 1185 1159; Mul 1305 570 1515;
  Mul 1223 253 1223; Mul 1518 547 1518; Add 1223 1223 1518; Mul 1182 215 1182; Mul 1518 562 1236;
  Add 1182 1182 1518; Sub 1223 1223 1182; Mul 1329 135 1329; Sub 1223 1223 1329; Mul 1181 271 1181;
  Mul 1329 283 1147; Add 1181 1181 1329; Sub 1181 1223 1181; Mul 1329 279 1181; Add 1182 1305 1329;
  Sub 1558 1558 1182; Mul 1182 300 1186; Mul 1518 275 1576; Add 1491 1182 1518; Mul 1287 271 1503;
  Mul 1499 292 1147; Add 1118 1287 1499; Add 1491 1491 1118; Mul 1118 1366 1147; Add 1647 1647 1118;
  Mul 1647 269 1647; Add 1647 1571 1647; Mul 1089 258 1647; Mul 1427 565 1383; Add 1355 1089 1427;
  Mul 1049 574 1074; Mul 1340 213 1158; Mul 1654 284 1340; Add 1624 1049 1654; Sub 1355 1355 1624;
  Add 1491 1491 1355; Sub 1558 1558 1491; Mul 1491 571 1207; Add 1355 1697 1571; Mul 1624 255 1355;
  Sub 1491 1491 1624; Mul 1624 278 1223; Mul 1171 569 1111; Add 1624 1624 1171; Add 1491 1491 1624;
  Mul 1624 296 1209; Mul 1171 280 1158; Add 1624 1624 1171; Add 1491 1491 1624; Mul 1624 471 1147;
  Mul 1171 278 1341; Mul 1389 282 1111; Add 1171 1171 1389; Mul 1389 255 1147; Mul 1396 271 1207;
  Add 1389 1389 1396; Sub 1171 1171 1389; Sub 1171 1333 1171; Mul 1171 269 1171].
Definition casadi_f0_682 : list instruction := [
  Mul 1389 271 1171; Add 1624 1624 1389; Mul 1389 573 1186; Mul 1396 255 1186; Mul 1097 275 1207;
  Add 1396 1396 1097; Mul 1097 296 1341; Mul 1455 282 1158; Add 1097 1097 1455; Sub 1396 1396 1097;
  Sub 1396 1145 1396; Mul 1396 269 1396; Mul 1097 275 1396; Add 1389 1389 1097; Sub 1624 1624 1389;
  Add 1491 1491 1624; Mul 1491 213 1491; Sub 1558 1558 1491; Mul 1624 581 1663; Mul 1389 314 1349;
  Mul 1097 317 1434; Mul 1455 128 1325; Sub 1097 1097 1455; Add 1389 1389 1097; Mul 1097 319 1389;
  Mul 1455 561 1349; Add 1097 1097 1455; Mul 1349 128 1349; Mul 1455 322 1434; Mul 1579 577 1325;
  Sub 1455 1455 1579; Add 1349 1349 1455; Mul 1455 216 1349; Mul 1579 576 1325; Sub 1455 1455 1579;
  Add 1097 1097 1455; Mul 1455 1379 1399; Mul 1579 1381 1666; Add 1664 1455 1579; Mul 1664 323 1664;
  Add 1664 1097 1664; Mul 1662 312 1664; Add 1091 1624 1662; Mul 1447 584 1589; Mul 1389 304 1389;
  Mul 1639 561 1639; Add 1389 1389 1639; Mul 1349 215 1349; Mul 1639 576 1236; Add 1349 1349 1639;
  Sub 1389 1389 1349; Mul 1417 131 1417; Sub 1389 1389 1417; Mul 1545 325 1545; Mul 1417 337 1270;
  Add 1545 1545 1417; Sub 1545 1389 1545; Mul 1417 333 1545; Add 1349 1447 1417; Sub 1091 1091 1349;
  Mul 1349 354 1666; Mul 1639 329 1275; Add 1449 1349 1639; Mul 1237 325 1110; Mul 1036 346 1270;
  Add 1403 1237 1036; Add 1449 1449 1403; Mul 1403 1390 1270; Add 1455 1455 1403; Mul 1455 323 1455;
  Add 1455 1539 1455; Mul 1375 312 1455; Mul 1019 579 1663; Add 1124 1375 1019; Mul 1353 588 1253;
  Mul 1479 213 1313; Mul 1120 338 1479; Add 1245 1353 1120; Sub 1124 1124 1245; Add 1449 1449 1124;
  Sub 1091 1091 1449; Mul 1449 585 1432; Add 1124 1097 1539; Mul 1245 309 1124; Sub 1449 1449 1245;
  Mul 1245 332 1389; Mul 1024 583 1233; Add 1245 1245 1024; Add 1449 1449 1245; Mul 1245 349 1668;
  Mul 1024 334 1313; Add 1245 1245 1024; Add 1449 1449 1245; Mul 1245 473 1270; Mul 1024 332 1399;
  Mul 1172 336 1233; Add 1024 1024 1172; Mul 1172 309 1270; Mul 1279 325 1432; Add 1172 1172 1279;
  Sub 1024 1024 1172; Sub 1024 1099 1024; Mul 1024 323 1024; Mul 1172 325 1024; Add 1245 1245 1172;
  Mul 1172 587 1666; Mul 1279 309 1666; Mul 1493 329 1432; Add 1279 1279 1493; Mul 1493 349 1399;
  Mul 1296 336 1313; Add 1493 1493 1296; Sub 1279 1279 1493; Sub 1279 1525 1279; Mul 1279 323 1279;
  Mul 1493 329 1279; Add 1172 1172 1493; Sub 1245 1245 1172; Add 1449 1449 1245; Mul 1449 213 1449;
  Sub 1091 1091 1449; Mul 1245 594 1193; Mul 1172 368 1183; Mul 1493 39 1673; Mul 1296 373 1434;
  Add 1493 1493 1296; Add 1172 1172 1493; Mul 1493 372 1172; Mul 1296 575 1183; Add 1493 1493 1296;
  Mul 1296 39 1183; Mul 1633 376 1673; Add 1296 1296 1633; Mul 1633 377 1296; Mul 1673 590 1673;
  Add 1633 1633 1673; Add 1493 1493 1633; Mul 1633 1404 1652; Mul 1673 1405 1112; Add 1394 1633 1673;
  Mul 1394 378 1394; Add 1394 1493 1394; Mul 1487 366 1394; Add 1108 1245 1487; Mul 1229 597 1595;
  Mul 1172 358 1172; Mul 1384 575 1025; Add 1172 1172 1384; Mul 1296 364 1296].
Definition casadi_f0_683 : list instruction := [
  Mul 1578 590 1578; Add 1296 1296 1578; Add 1172 1172 1296; Mul 1235 69 1235; Add 1172 1172 1235;
  Mul 1701 381 1701; Mul 1235 392 1274; Add 1701 1701 1235; Sub 1701 1172 1701; Mul 1235 388 1701;
  Add 1296 1229 1235; Sub 1108 1108 1296; Mul 1296 409 1112; Mul 1578 384 1230; Add 1384 1296 1578;
  Mul 1195 381 1351; Mul 1196 401 1274; Add 1163 1195 1196; Add 1384 1384 1163; Mul 1163 1414 1274;
  Add 1633 1633 1163; Mul 1633 378 1633; Add 1633 1125 1633; Mul 1143 366 1633; Mul 1473 592 1193;
  Add 1285 1143 1473; Mul 1416 601 1429; Mul 1684 213 1425; Mul 1601 393 1684; Add 1588 1416 1601;
  Sub 1285 1285 1588; Add 1384 1384 1285; Sub 1108 1108 1384; Mul 1384 598 1438; Add 1285 1493 1125;
  Mul 1588 363 1285; Sub 1384 1384 1588; Mul 1588 387 1172; Mul 1129 596 1613; Add 1588 1588 1129;
  Add 1384 1384 1588; Mul 1588 405 1471; Mul 1129 389 1425; Add 1588 1588 1129; Add 1384 1384 1588;
  Mul 1588 475 1274; Mul 1129 387 1652; Mul 1458 391 1613; Add 1129 1129 1458; Mul 1458 363 1274;
  Mul 1527 381 1438; Add 1458 1458 1527; Sub 1129 1129 1458; Sub 1129 1170 1129; Mul 1129 378 1129;
  Mul 1458 381 1129; Add 1588 1588 1458; Mul 1458 600 1112; Mul 1527 363 1112; Mul 1421 384 1438;
  Add 1527 1527 1421; Mul 1421 405 1652; Mul 1189 391 1425; Add 1421 1421 1189; Sub 1527 1527 1421;
  Sub 1527 1232 1527; Mul 1527 378 1527; Mul 1421 384 1527; Add 1458 1458 1421; Sub 1588 1588 1458;
  Add 1384 1384 1588; Mul 1384 213 1384; Sub 1108 1108 1384; Mul 1588 607 1644; Mul 1458 423 1183;
  Mul 1421 40 1374; Mul 1189 42 1240; Add 1421 1421 1189; Add 1458 1458 1421; Mul 1421 372 1458;
  Mul 1189 589 1183; Add 1421 1421 1189; Mul 1189 40 1183; Mul 1406 14 1374; Mul 1240 18 1240;
  Add 1406 1406 1240; Add 1189 1189 1406; Mul 1406 429 1189; Mul 1374 603 1374; Add 1406 1406 1374;
  Add 1421 1421 1406; Mul 1406 1428 1367; Mul 1374 1264 1255; Add 1240 1406 1374; Mul 1240 430 1240;
  Add 1240 1421 1240; Mul 1219 420 1240; Add 1653 1588 1219; Mul 1093 610 1227; Mul 1458 358 1458;
  Mul 1176 589 1025; Add 1458 1458 1176; Mul 1189 418 1189; Mul 1440 603 1440; Add 1189 1189 1440;
  Add 1458 1458 1189; Mul 1295 43 1295; Mul 1189 431 1597; Sub 1295 1295 1189; Add 1458 1458 1295;
  Mul 1568 434 1568; Mul 1295 446 1474; Add 1568 1568 1295; Sub 1568 1458 1568; Mul 1295 442 1568;
  Add 1189 1093 1295; Sub 1653 1653 1189; Mul 1189 463 1255; Mul 1440 438 1319; Add 1176 1189 1440;
  Mul 1522 434 1618; Mul 1244 455 1474; Add 1469 1522 1244; Add 1176 1176 1469; Mul 1469 1437 1474;
  Add 1406 1406 1469; Mul 1406 430 1406; Add 1406 1523 1406; Mul 1228 420 1406; Mul 1611 605 1644;
  Add 1316 1228 1611; Mul 1194 614 1659; Mul 1141 213 1641; Mul 1550 447 1141; Add 1420 1194 1550;
  Sub 1316 1316 1420; Add 1176 1176 1316; Sub 1653 1653 1176; Mul 1176 13 1241; Add 1316 1421 1523;
  Mul 1420 417 1316; Sub 1176 1176 1420; Mul 1420 441 1458; Mul 1439 609 1261; Add 1420 1420 1439;
  Add 1176 1176 1420; Mul 1420 459 1142; Mul 1439 443 1641; Add 1420 1420 1439].
Definition casadi_f0_684 : list instruction := [
  Add 1176 1176 1420; Mul 1420 477 1474; Mul 1439 441 1367; Mul 1380 445 1261; Add 1439 1439 1380;
  Mul 1380 417 1474; Mul 1137 434 1241; Add 1380 1380 1137; Sub 1439 1439 1380; Sub 1439 1470 1439;
  Mul 1439 430 1439; Mul 1380 434 1439; Add 1420 1420 1380; Mul 1380 611 1255; Mul 1137 417 1255;
  Mul 1021 438 1241; Add 1137 1137 1021; Mul 1021 459 1367; Mul 1682 445 1641; Add 1021 1021 1682;
  Sub 1137 1137 1021; Sub 1137 1127 1137; Mul 1137 430 1137; Mul 1021 438 1137; Add 1380 1380 1021;
  Sub 1420 1420 1380; Add 1176 1176 1420; Mul 1176 213 1176; Sub 1653 1653 1176; Add 1108 1108 1653;
  Add 1091 1091 1108; Add 1558 1558 1091; Add 1541 1541 1558; Mul 1541 216 1541; Mul 1420 554 1325;
  Sub 1541 1541 1420; Mul 1420 242 1247; Mul 1380 230 1094; Sub 1420 1420 1380; Mul 1380 560 1312;
  Mul 1021 248 1580; Add 1682 1380 1021; Mul 1608 244 1608; Mul 1362 551 1410; Add 1450 1608 1362;
  Sub 1682 1682 1450; Sub 1682 1420 1682; Mul 1450 556 1593; Mul 1689 249 1271; Add 1030 1450 1689;
  Mul 1431 558 1410; Sub 1175 1175 1537; Mul 1175 212 1175; Add 1175 1494 1175; Mul 1537 244 1175;
  Add 1486 1431 1537; Sub 1030 1030 1486; Add 1682 1682 1030; Mul 1030 219 1265; Mul 1486 555 1122;
  Add 1030 1030 1486; Mul 1486 227 1139; Mul 1495 550 1130; Add 1486 1486 1495; Add 1030 1030 1486;
  Mul 1486 525 1226; Mul 1495 246 1556; Add 1486 1486 1495; Add 1030 1030 1486; Mul 1486 231 1502;
  Mul 1495 340 1667; Sub 1486 1486 1495; Mul 1495 525 1113; Mul 1677 225 1556; Add 1495 1495 1677;
  Mul 1677 242 1130; Mul 1106 227 1094; Sub 1677 1677 1106; Sub 1495 1495 1677; Add 1495 1084 1495;
  Mul 1495 212 1495; Mul 1677 242 1495; Mul 1106 616 1094; Sub 1677 1677 1106; Sub 1486 1486 1677;
  Add 1030 1030 1486; Mul 1030 213 1030; Add 1682 1682 1030; Mul 1486 570 1383; Mul 1677 258 1181;
  Add 1106 1486 1677; Mul 1565 572 1515; Add 1118 1118 1200; Mul 1118 269 1118; Sub 1118 1118 1355;
  Mul 1200 279 1118; Add 1165 1565 1200; Sub 1106 1106 1165; Mul 1165 297 1186; Mul 1330 275 1154;
  Add 1680 1165 1330; Mul 1466 282 1503; Mul 1444 292 1341; Add 1206 1466 1444; Add 1680 1680 1206;
  Mul 1206 574 1338; Mul 1555 276 1340; Add 1484 1206 1555; Mul 1647 279 1647; Mul 1452 565 1515;
  Add 1376 1647 1452; Sub 1484 1484 1376; Add 1680 1680 1484; Sub 1106 1106 1680; Mul 1680 255 1223;
  Mul 1484 569 1207; Add 1680 1680 1484; Mul 1484 278 1697; Mul 1376 564 1111; Add 1484 1484 1376;
  Add 1680 1680 1484; Mul 1484 296 1598; Mul 1376 266 1158; Add 1484 1484 1376; Add 1680 1680 1484;
  Mul 1484 617 1186; Mul 1376 296 1147; Mul 1102 271 1158; Add 1376 1376 1102; Mul 1102 278 1186;
  Mul 1192 275 1111; Add 1102 1102 1192; Sub 1376 1376 1102; Sub 1376 1426 1376; Mul 1376 269 1376;
  Mul 1102 275 1376; Add 1484 1484 1102; Mul 1102 471 1341; Mul 1192 282 1171; Add 1102 1102 1192;
  Sub 1484 1484 1102; Add 1680 1680 1484; Mul 1680 213 1680; Add 1106 1106 1680; Mul 1484 584 1663;
  Mul 1102 312 1545; Add 1192 1484 1102; Mul 1123 586 1589; Add 1403 1403 1579].
Definition casadi_f0_685 : list instruction := [
  Mul 1403 323 1403; Sub 1403 1403 1124; Mul 1579 333 1403; Add 1632 1123 1579; Sub 1192 1192 1632;
  Mul 1632 351 1666; Mul 1096 329 1391; Add 1135 1632 1096; Mul 1205 336 1110; Mul 1187 346 1399;
  Add 1042 1205 1187; Add 1135 1135 1042; Mul 1042 588 1643; Mul 1203 330 1479; Add 1457 1042 1203;
  Mul 1455 333 1455; Mul 1665 579 1589; Add 1315 1455 1665; Sub 1457 1457 1315; Add 1135 1135 1457;
  Sub 1192 1192 1135; Mul 1135 309 1389; Mul 1457 583 1432; Add 1135 1135 1457; Mul 1457 332 1097;
  Mul 1315 578 1233; Add 1457 1457 1315; Add 1135 1135 1457; Mul 1457 349 1511; Mul 1315 320 1313;
  Add 1457 1457 1315; Add 1135 1135 1457; Mul 1457 619 1666; Mul 1315 349 1270; Mul 1509 325 1313;
  Add 1315 1315 1509; Mul 1509 332 1666; Mul 1204 329 1233; Add 1509 1509 1204; Sub 1315 1315 1509;
  Sub 1315 1121 1315; Mul 1315 323 1315; Mul 1509 329 1315; Add 1457 1457 1509; Mul 1509 473 1399;
  Mul 1204 336 1024; Add 1509 1509 1204; Sub 1457 1457 1509; Add 1135 1135 1457; Mul 1135 213 1135;
  Add 1192 1192 1135; Mul 1457 597 1193; Mul 1509 366 1701; Add 1204 1457 1509; Mul 1378 599 1595;
  Add 1163 1163 1673; Mul 1163 378 1163; Sub 1163 1163 1285; Mul 1673 388 1163; Add 1688 1378 1673;
  Sub 1204 1204 1688; Mul 1688 406 1112; Mul 1156 384 1167; Add 1055 1688 1156; Mul 1140 391 1351;
  Mul 1656 401 1652; Add 1482 1140 1656; Add 1055 1055 1482; Mul 1482 601 1671; Mul 1320 385 1684;
  Add 1412 1482 1320; Mul 1633 388 1633; Mul 1034 592 1595; Add 1699 1633 1034; Sub 1412 1412 1699;
  Add 1055 1055 1412; Sub 1204 1204 1055; Mul 1055 363 1172; Mul 1412 596 1438; Add 1055 1055 1412;
  Mul 1412 387 1493; Mul 1699 591 1613; Add 1412 1412 1699; Add 1055 1055 1412; Mul 1412 405 1216;
  Mul 1699 374 1425; Add 1412 1412 1699; Add 1055 1055 1412; Mul 1412 621 1112; Mul 1699 405 1274;
  Mul 1628 381 1425; Add 1699 1699 1628; Mul 1628 387 1112; Mul 1409 384 1613; Add 1628 1628 1409;
  Sub 1699 1699 1628; Sub 1699 1640 1699; Mul 1699 378 1699; Mul 1628 384 1699; Add 1412 1412 1628;
  Mul 1628 475 1652; Mul 1409 391 1129; Add 1628 1628 1409; Sub 1412 1412 1628; Add 1055 1055 1412;
  Mul 1055 213 1055; Add 1204 1204 1055; Mul 1412 610 1644; Mul 1628 420 1568; Add 1409 1412 1628;
  Mul 1134 612 1227; Add 1469 1469 1374; Mul 1469 430 1469; Sub 1469 1469 1316; Mul 1374 442 1469;
  Add 1483 1134 1374; Sub 1409 1409 1483; Mul 1483 460 1255; Mul 1574 438 1263; Add 1173 1483 1574;
  Mul 1562 445 1618; Mul 1350 455 1367; Add 1657 1562 1350; Add 1173 1173 1657; Mul 1657 614 1311;
  Mul 1297 439 1141; Add 1213 1657 1297; Mul 1406 442 1406; Mul 1191 605 1227; Add 1238 1406 1191;
  Sub 1213 1213 1238; Add 1173 1173 1213; Sub 1409 1409 1173; Mul 1173 417 1458; Mul 1213 609 1241;
  Add 1173 1173 1213; Mul 1213 441 1421; Mul 1238 604 1261; Add 1213 1213 1238; Add 1173 1173 1213;
  Mul 1213 459 1105; Mul 1238 426 1641; Add 1213 1213 1238; Add 1173 1173 1213; Mul 1213 623 1255;
  Mul 1238 459 1474; Mul 1672 434 1641; Add 1238 1238 1672; Mul 1672 441 1255].
Definition casadi_f0_686 : list instruction := [
  Mul 1308 438 1261; Add 1672 1672 1308; Sub 1238 1238 1672; Sub 1238 1573 1238; Mul 1238 430 1238;
  Mul 1672 438 1238; Add 1213 1213 1672; Mul 1672 477 1367; Mul 1308 445 1439; Add 1672 1672 1308;
  Sub 1213 1213 1672; Add 1173 1173 1213; Mul 1173 213 1173; Add 1409 1409 1173; Add 1204 1204 1409;
  Add 1192 1192 1204; Add 1106 1106 1192; Add 1682 1682 1106; Mul 1682 215 1682; Mul 1213 613 1236;
  Add 1682 1682 1213; Sub 1541 1541 1682; Mul 1682 212 1593; Mul 1213 242 1682; Mul 1672 624 1094;
  Sub 1213 1213 1672; Mul 1672 212 1580; Mul 1308 231 1672; Mul 1575 626 1667; Sub 1308 1308 1575;
  Add 1308 1513 1308; Sub 1213 1213 1308; Mul 1308 213 1528; Add 1575 1213 1308; Mul 1082 269 1383;
  Mul 1461 275 1082; Mul 1645 629 1186; Add 1533 1461 1645; Mul 1459 631 1341; Mul 1060 269 1340;
  Mul 1620 282 1060; Add 1698 1459 1620; Add 1698 1576 1698; Sub 1533 1533 1698; Mul 1698 213 1396;
  Add 1062 1533 1698; Mul 1302 323 1663; Mul 1358 329 1302; Mul 1292 634 1666; Add 1149 1358 1292;
  Mul 1225 636 1399; Mul 1318 323 1479; Mul 1510 336 1318; Add 1075 1225 1510; Add 1075 1275 1075;
  Sub 1149 1149 1075; Mul 1075 213 1279; Add 1505 1149 1075; Mul 1104 378 1193; Mul 1242 384 1104;
  Mul 1282 639 1112; Add 1675 1242 1282; Mul 1402 641 1652; Mul 1152 378 1684; Mul 1037 391 1152;
  Add 1277 1402 1037; Add 1277 1230 1277; Sub 1675 1675 1277; Mul 1277 213 1527; Add 1107 1675 1277;
  Mul 1448 430 1644; Mul 1467 438 1448; Mul 1692 644 1255; Add 1538 1467 1692; Mul 1554 646 1367;
  Mul 1231 430 1141; Mul 1520 445 1231; Add 1526 1554 1520; Add 1526 1319 1526; Sub 1538 1538 1526;
  Mul 1526 213 1137; Add 1638 1538 1526; Add 1107 1107 1638; Add 1505 1505 1107; Add 1062 1062 1505;
  Add 1575 1575 1062; Mul 1575 540 1575; Mul 1088 628 1048; Sub 1575 1575 1088; Mul 1088 212 1410;
  Mul 1400 242 1088; Mul 1445 650 1094; Sub 1400 1400 1445; Mul 1445 626 1113; Mul 1606 225 1672;
  Add 1445 1445 1606; Add 1445 1247 1445; Sub 1400 1400 1445; Mul 1445 213 1495; Add 1606 1400 1445;
  Mul 1690 631 1147; Mul 1370 271 1060; Add 1583 1690 1370; Sub 1583 1154 1583; Mul 1549 269 1515;
  Mul 1442 275 1549; Mul 1477 655 1186; Add 1347 1442 1477; Add 1583 1583 1347; Mul 1347 213 1376;
  Sub 1392 1583 1347; Mul 1570 636 1270; Mul 1079 325 1318; Add 1567 1570 1079; Sub 1567 1391 1567;
  Mul 1388 323 1589; Mul 1180 329 1388; Mul 1234 659 1666; Add 1174 1180 1234; Add 1567 1567 1174;
  Mul 1174 213 1315; Sub 1254 1567 1174; Mul 1335 641 1274; Mul 1563 381 1152; Add 1272 1335 1563;
  Sub 1272 1167 1272; Mul 1634 378 1595; Mul 1433 384 1634; Mul 1348 663 1112; Add 1017 1433 1348;
  Add 1272 1272 1017; Mul 1017 213 1699; Sub 1166 1272 1017; Mul 1627 646 1474; Mul 1411 434 1231;
  Add 1151 1627 1411; Sub 1151 1263 1151; Mul 1289 430 1227; Mul 1051 438 1289; Mul 1343 667 1255;
  Add 1413 1051 1343; Add 1151 1151 1413; Mul 1413 213 1238; Sub 1478 1151 1413; Add 1166 1166 1478;
  Add 1254 1254 1166; Add 1392 1392 1254; Add 1606 1606 1392; Mul 1606 544 1606].
Definition casadi_f0_687 : list instruction := [
  Mul 1603 653 1157; Add 1606 1606 1603; Add 1575 1575 1606; Sub 1541 1541 1575; Add 1098 1098 1541;
  Mul 1098 1 1098; Mul 1541 509 1463; Add 1098 1098 1541; Add 1076 1076 1098; Mul 1098 602 1542;
  Mul 1541 216 1158; Mul 1575 296 1325; Sub 1541 1541 1575; Mul 1575 517 1541; Add 1098 1098 1575;
  Mul 1575 670 1460; Mul 1606 215 1158; Mul 1603 296 1236; Add 1606 1606 1603; Mul 1603 532 1606;
  Add 1575 1575 1603; Add 1098 1098 1575; Mul 1655 671 1655; Mul 1575 216 1207; Mul 1603 255 1325;
  Sub 1575 1575 1603; Mul 1603 215 1111; Mul 1258 278 1236; Add 1603 1603 1258; Add 1575 1575 1603;
  Mul 1603 492 1575; Add 1655 1655 1603; Sub 1098 1098 1655; Mul 1655 675 1300; Mul 1603 215 1333;
  Mul 1258 290 1236; Add 1603 1603 1258; Mul 1258 674 1158; Mul 1363 216 1584; Mul 1693 274 1325;
  Add 1363 1363 1693; Mul 1693 296 1363; Sub 1258 1258 1693; Mul 1693 676 1207; Mul 1621 215 1621;
  Mul 1594 270 1236; Add 1621 1621 1594; Mul 1422 216 1422; Mul 1594 281 1325; Add 1422 1422 1594;
  Sub 1621 1621 1422; Mul 1422 255 1621; Add 1693 1693 1422; Add 1258 1258 1693; Add 1603 1603 1258;
  Mul 1258 602 1524; Mul 1693 523 1541; Add 1258 1258 1693; Mul 1693 671 1300; Mul 1422 502 1575;
  Add 1693 1693 1422; Add 1258 1258 1693; Sub 1258 1603 1258; Mul 1258 672 1258; Mul 1693 502 1258;
  Add 1655 1655 1693; Mul 1693 679 1278; Mul 1333 216 1333; Mul 1422 290 1325; Sub 1333 1333 1422;
  Mul 1422 676 1111; Mul 1594 278 1621; Add 1422 1422 1594; Mul 1594 680 1158; Mul 1022 274 1236;
  Mul 1584 215 1584; Sub 1022 1022 1584; Mul 1584 296 1022; Add 1594 1594 1584; Add 1422 1422 1594;
  Sub 1333 1333 1422; Mul 1422 671 1278; Mul 1594 505 1575; Add 1422 1422 1594; Mul 1594 670 1524;
  Mul 1584 523 1606; Add 1594 1594 1584; Add 1422 1422 1594; Add 1422 1333 1422; Mul 1422 672 1422;
  Mul 1594 505 1422; Add 1693 1693 1594; Sub 1655 1655 1693; Add 1098 1098 1655; Mul 1062 674 1062;
  Mul 1655 633 1363; Sub 1062 1062 1655; Mul 1392 680 1392; Mul 1655 657 1022; Add 1392 1392 1655;
  Mul 1060 275 1060; Mul 1186 631 1186; Add 1655 1060 1186; Mul 1693 629 1341; Mul 1594 282 1082;
  Add 1584 1693 1594; Mul 1454 655 1147; Mul 1585 271 1549; Add 1401 1454 1585; Add 1186 1186 1060;
  Add 1060 1401 1186; Add 1584 1584 1060; Sub 1648 1655 1584; Add 1594 1594 1693; Add 1585 1585 1454;
  Add 1655 1585 1655; Add 1594 1594 1655; Sub 1186 1186 1594; Sub 1648 1648 1186; Mul 1318 329 1318;
  Mul 1666 636 1666; Add 1186 1318 1666; Mul 1454 634 1399; Mul 1693 336 1302; Add 1481 1454 1693;
  Mul 1090 659 1270; Mul 1660 325 1388; Add 1243 1090 1660; Add 1666 1666 1318; Add 1318 1243 1666;
  Add 1481 1481 1318; Sub 1190 1186 1481; Add 1693 1693 1454; Add 1660 1660 1090; Add 1186 1660 1186;
  Add 1693 1693 1186; Sub 1666 1666 1693; Sub 1190 1190 1666; Mul 1152 384 1152; Mul 1112 641 1112;
  Add 1666 1152 1112; Mul 1090 639 1652; Mul 1454 391 1104; Add 1453 1090 1454; Mul 1346 663 1274;
  Mul 1548 381 1634; Add 1535 1346 1548; Add 1112 1112 1152; Add 1152 1535 1112].
Definition casadi_f0_688 : list instruction := [
  Add 1453 1453 1152; Sub 1133 1666 1453; Add 1454 1454 1090; Add 1548 1548 1346; Add 1666 1548 1666;
  Add 1454 1454 1666; Sub 1112 1112 1454; Sub 1133 1133 1112; Mul 1231 438 1231; Mul 1112 646 1255;
  Add 1346 1231 1112; Mul 1090 644 1367; Mul 1218 445 1448; Add 1507 1090 1218; Mul 1198 667 1474;
  Mul 1354 434 1289; Add 1310 1198 1354; Add 1112 1112 1231; Add 1231 1310 1112; Add 1507 1507 1231;
  Sub 1419 1346 1507; Add 1218 1218 1090; Add 1354 1354 1198; Add 1346 1354 1346; Add 1218 1218 1346;
  Sub 1112 1112 1218; Sub 1419 1419 1112; Add 1133 1133 1419; Add 1190 1190 1133; Add 1648 1648 1190;
  Mul 1648 676 1648; Mul 1112 687 1621; Add 1198 1648 1112; Sub 1392 1392 1198; Add 1062 1062 1392;
  Mul 1106 215 1106; Mul 1392 552 1236; Add 1106 1106 1392; Mul 1558 216 1558; Mul 1392 568 1325;
  Sub 1558 1558 1392; Sub 1106 1106 1558; Add 1062 1062 1106; Add 1098 1098 1062; Mul 1098 2 1098;
  Mul 1062 649 1497; Add 1098 1098 1062; Add 1076 1076 1098; Mul 1572 677 1572; Mul 1098 216 1432;
  Mul 1062 309 1325; Sub 1098 1098 1062; Mul 1062 215 1233; Mul 1106 332 1236; Add 1062 1062 1106;
  Add 1098 1098 1062; Mul 1062 484 1098; Add 1572 1572 1062; Mul 1062 706 1552; Mul 1106 216 1313;
  Mul 1558 349 1325; Sub 1106 1106 1558; Mul 1558 513 1106; Add 1062 1062 1558; Mul 1558 712 1642;
  Mul 1392 215 1313; Mul 1198 349 1236; Add 1392 1392 1198; Mul 1198 530 1392; Add 1558 1558 1198;
  Add 1062 1062 1558; Sub 1572 1572 1062; Mul 1062 711 1536; Mul 1558 706 1599; Mul 1198 519 1106;
  Add 1558 1558 1198; Mul 1198 677 1536; Mul 1090 494 1098; Add 1198 1198 1090; Add 1558 1558 1198;
  Mul 1198 215 1099; Mul 1090 344 1236; Add 1198 1198 1090; Mul 1090 714 1313; Mul 1700 216 1257;
  Mul 1248 328 1325; Sub 1700 1700 1248; Mul 1248 349 1700; Add 1090 1090 1248; Mul 1248 716 1432;
  Mul 1327 216 1327; Mul 1407 335 1325; Sub 1327 1327 1407; Mul 1577 215 1577; Mul 1407 324 1236;
  Add 1577 1577 1407; Add 1327 1327 1577; Mul 1577 309 1327; Add 1248 1248 1577; Add 1090 1090 1248;
  Add 1198 1198 1090; Sub 1558 1558 1198; Mul 1558 156 1558; Mul 1090 494 1558; Add 1062 1062 1090;
  Mul 1090 719 1506; Mul 1248 716 1233; Mul 1577 332 1327; Add 1248 1248 1577; Mul 1577 718 1313;
  Mul 1257 215 1257; Mul 1407 328 1236; Add 1257 1257 1407; Mul 1407 349 1257; Add 1577 1577 1407;
  Add 1248 1248 1577; Mul 1099 216 1099; Mul 1577 344 1325; Sub 1099 1099 1577; Sub 1248 1248 1099;
  Mul 1099 677 1506; Mul 1577 497 1098; Add 1099 1099 1577; Mul 1577 712 1599; Mul 1407 519 1392;
  Add 1577 1577 1407; Add 1099 1099 1577; Sub 1099 1248 1099; Mul 1099 156 1099; Mul 1577 497 1099;
  Add 1090 1090 1577; Sub 1062 1062 1090; Add 1572 1572 1062; Mul 1190 716 1190; Mul 1062 694 1327;
  Add 1090 1190 1062; Mul 1254 718 1254; Mul 1577 661 1257; Add 1254 1254 1577; Sub 1090 1090 1254;
  Mul 1505 714 1505; Mul 1254 638 1700; Add 1505 1505 1254; Sub 1090 1090 1505; Mul 1091 216 1091;
  Mul 1505 582 1325; Sub 1091 1091 1505; Mul 1192 215 1192; Mul 1505 618 1236].
Definition casadi_f0_689 : list instruction := [
  Add 1192 1192 1505; Sub 1091 1091 1192; Add 1090 1090 1091; Add 1572 1572 1090; Mul 1572 3 1572;
  Mul 1090 681 1131; Add 1572 1572 1090; Add 1076 1076 1572; Mul 1572 715 1053; Mul 1090 327 1425;
  Mul 1091 405 1434; Add 1090 1090 1091; Mul 1091 318 1613; Mul 1192 387 1670; Add 1091 1091 1192;
  Sub 1090 1090 1091; Mul 1091 510 1090; Add 1572 1572 1091; Mul 1091 721 1267; Mul 1192 318 1438;
  Mul 1505 363 1670; Add 1192 1192 1505; Mul 1505 310 1425; Mul 1254 405 1398; Add 1505 1505 1254;
  Sub 1192 1192 1505; Mul 1505 528 1192; Add 1091 1091 1505; Add 1572 1572 1091; Mul 1091 722 1500;
  Mul 1505 310 1613; Mul 1254 387 1398; Add 1505 1505 1254; Mul 1254 327 1438; Mul 1577 363 1434;
  Add 1254 1254 1577; Sub 1505 1505 1254; Mul 1254 479 1505; Add 1091 1091 1254; Add 1572 1572 1091;
  Mul 1091 726 1224; Mul 1254 318 1640; Mul 1577 404 1670; Add 1254 1254 1577; Mul 1577 310 1170;
  Mul 1407 399 1398; Add 1577 1577 1407; Sub 1254 1254 1577; Mul 1577 725 1425; Mul 1407 327 1337;
  Mul 1081 383 1434; Add 1407 1407 1081; Mul 1081 318 1423; Mul 1386 379 1670; Add 1081 1081 1386;
  Sub 1407 1407 1081; Mul 1081 405 1407; Add 1577 1577 1081; Mul 1081 727 1438; Mul 1423 310 1423;
  Mul 1386 379 1398; Add 1423 1423 1386; Mul 1386 327 1501; Mul 1364 390 1434; Add 1386 1386 1364;
  Sub 1423 1423 1386; Mul 1386 363 1423; Add 1081 1081 1386; Sub 1577 1577 1081; Add 1254 1254 1577;
  Mul 1577 715 1016; Mul 1081 515 1090; Add 1577 1577 1081; Mul 1081 722 1224; Mul 1386 486 1505;
  Add 1081 1081 1386; Sub 1577 1577 1081; Sub 1577 1254 1577; Mul 1577 723 1577; Mul 1081 486 1577;
  Add 1091 1091 1081; Mul 1081 730 1126; Mul 1170 327 1170; Mul 1386 399 1434; Add 1170 1170 1386;
  Mul 1386 318 1232; Mul 1364 408 1670; Add 1386 1386 1364; Sub 1170 1170 1386; Mul 1386 727 1613;
  Mul 1364 387 1423; Add 1386 1386 1364; Mul 1364 731 1425; Mul 1501 318 1501; Mul 1268 390 1670;
  Add 1501 1501 1268; Mul 1337 310 1337; Mul 1268 383 1398; Add 1337 1337 1268; Sub 1501 1501 1337;
  Mul 1337 405 1501; Add 1364 1364 1337; Sub 1386 1386 1364; Add 1170 1170 1386; Mul 1386 722 1126;
  Mul 1364 489 1505; Add 1386 1386 1364; Mul 1364 721 1016; Mul 1337 515 1192; Add 1364 1364 1337;
  Sub 1386 1386 1364; Sub 1386 1170 1386; Mul 1386 723 1386; Mul 1364 489 1386; Add 1081 1081 1364;
  Sub 1091 1091 1081; Add 1572 1572 1091; Mul 1091 725 1107; Mul 1081 643 1407; Add 1091 1091 1081;
  Mul 1081 731 1166; Mul 1364 665 1501; Add 1081 1081 1364; Mul 1364 727 1133; Mul 1337 701 1423;
  Add 1268 1364 1337; Add 1081 1081 1268; Add 1091 1091 1081; Mul 1081 310 1204; Mul 1268 620 1398;
  Add 1081 1081 1268; Mul 1268 327 1108; Mul 1169 595 1434; Add 1268 1268 1169; Mul 1646 318 1646;
  Mul 1169 395 1670; Add 1119 1646 1169; Add 1268 1268 1119; Add 1081 1081 1268; Sub 1091 1091 1081;
  Add 1572 1572 1091; Mul 1091 4 1572; Mul 1081 720 1071; Add 1091 1091 1081; Add 1076 1076 1091;
  Mul 1091 728 1142; Mul 1081 372 1641; Mul 1268 459 1183; Add 1081 1081 1268].
Definition casadi_f0_690 : list instruction := [
  Mul 1268 369 1261; Mul 1119 441 1597; Add 1268 1268 1119; Sub 1081 1081 1268; Mul 1268 443 1081;
  Add 1091 1091 1268; Mul 1268 733 1105; Mul 1119 369 1241; Mul 1546 417 1597; Add 1119 1119 1546;
  Mul 1546 358 1641; Mul 1101 459 1025; Add 1546 1546 1101; Sub 1119 1119 1546; Mul 1546 426 1119;
  Add 1268 1268 1546; Add 1091 1091 1268; Mul 1268 734 1523; Mul 1546 358 1261; Mul 1101 441 1025;
  Add 1546 1546 1101; Mul 1101 372 1241; Mul 1674 417 1183; Add 1101 1101 1674; Sub 1546 1546 1101;
  Mul 1101 478 1546; Add 1268 1268 1101; Add 1091 1091 1268; Mul 1268 735 1367; Mul 1101 369 1573;
  Mul 1674 458 1597; Add 1101 1101 1674; Mul 1674 358 1470; Mul 1301 451 1025; Add 1674 1674 1301;
  Sub 1101 1101 1674; Mul 1674 736 1641; Mul 1301 372 1221; Mul 1424 437 1183; Add 1301 1301 1424;
  Mul 1424 369 1368; Mul 1332 432 1597; Add 1424 1424 1332; Sub 1301 1301 1424; Mul 1424 459 1301;
  Add 1674 1674 1424; Mul 1424 738 1241; Mul 1368 358 1368; Mul 1332 432 1025; Add 1368 1368 1332;
  Mul 1332 372 1685; Mul 1168 444 1183; Add 1332 1332 1168; Sub 1368 1368 1332; Mul 1332 417 1368;
  Add 1424 1424 1332; Sub 1674 1674 1424; Add 1101 1101 1674; Mul 1674 728 1255; Mul 1424 438 1081;
  Add 1674 1674 1424; Mul 1424 734 1367; Mul 1332 445 1546; Add 1424 1424 1332; Sub 1674 1674 1424;
  Sub 1101 1101 1674; Mul 1101 430 1101; Mul 1674 445 1101; Add 1268 1268 1674; Mul 1674 739 1474;
  Mul 1470 372 1470; Mul 1424 451 1183; Add 1470 1470 1424; Mul 1424 369 1127; Mul 1332 462 1597;
  Add 1424 1424 1332; Sub 1470 1470 1424; Mul 1424 738 1261; Mul 1332 441 1368; Add 1424 1424 1332;
  Mul 1332 741 1641; Mul 1685 369 1685; Mul 1168 444 1597; Add 1685 1685 1168; Mul 1221 358 1221;
  Mul 1168 437 1025; Add 1221 1221 1168; Sub 1685 1685 1221; Mul 1221 459 1685; Add 1332 1332 1221;
  Sub 1424 1424 1332; Add 1470 1470 1424; Mul 1424 734 1474; Mul 1332 434 1546; Add 1424 1424 1332;
  Mul 1332 733 1255; Mul 1221 438 1119; Add 1332 1332 1221; Sub 1424 1424 1332; Sub 1470 1470 1424;
  Mul 1470 430 1470; Mul 1424 434 1470; Add 1674 1674 1424; Sub 1268 1268 1674; Add 1091 1091 1268;
  Mul 1268 736 1638; Mul 1674 648 1301; Add 1268 1268 1674; Mul 1674 741 1478; Mul 1424 669 1685;
  Add 1674 1674 1424; Mul 1424 738 1419; Mul 1332 708 1368; Add 1221 1424 1332; Add 1674 1674 1221;
  Add 1268 1268 1674; Mul 1674 358 1409; Mul 1221 622 1025; Add 1674 1674 1221; Mul 1221 372 1653;
  Mul 1168 608 1183; Add 1221 1221 1168; Mul 1339 369 1339; Mul 1168 449 1597; Add 1504 1339 1168;
  Add 1221 1221 1504; Add 1674 1674 1221; Sub 1268 1268 1674; Add 1091 1091 1268; Mul 1268 5 1091;
  Mul 1674 732 1600; Add 1268 1268 1674; Add 1076 1076 1268; Mul 1268 286 1020; Mul 1674 212 1268;
  Mul 1674 107 1674; Mul 1221 745 1651; Mul 1504 737 1651; Mul 1631 9 1268; Add 1504 1504 1631;
  Mul 1631 743 1636; Mul 1591 286 1612; Mul 1344 8 1591; Add 1631 1631 1344; Sub 1504 1504 1631;
  Mul 1631 269 1504; Mul 1344 81 1631; Mul 1291 746 1210; Mul 1498 743 1651].
Definition casadi_f0_691 : list instruction := [
  Mul 1018 9 1591; Sub 1498 1498 1018; Mul 1268 8 1268; Mul 1018 737 1636; Sub 1268 1268 1018;
  Sub 1498 1498 1268; Mul 1268 53 1498; Add 1291 1291 1268; Mul 1268 66 1504; Mul 1018 742 1035;
  Sub 1268 1268 1018; Add 1291 1291 1268; Mul 1268 323 1291; Mul 1018 47 1268; Mul 1587 378 1291;
  Mul 1418 24 1587; Mul 1377 752 1280; Mul 1117 66 1498; Mul 1322 746 1035; Sub 1117 1117 1322;
  Mul 1322 742 1210; Mul 1504 53 1504; Add 1322 1322 1504; Sub 1117 1117 1322; Mul 1322 35 1117;
  Add 1377 1377 1322; Mul 1322 378 1377; Mul 1504 31 1322; Sub 1418 1418 1504; Mul 1504 753 1490;
  Mul 1202 15 1377; Add 1504 1504 1202; Mul 1202 16 1291; Mul 1521 747 1372; Sub 1202 1202 1521;
  Add 1504 1504 1202; Mul 1504 430 1504; Mul 1202 26 1504; Mul 1377 16 1377; Mul 1521 753 1372;
  Sub 1377 1377 1521; Mul 1521 747 1490; Mul 1291 15 1291; Add 1521 1521 1291; Sub 1377 1377 1521;
  Mul 1377 430 1377; Mul 1521 28 1377; Sub 1202 1202 1521; Mul 1521 16 1504; Mul 1291 755 1372;
  Sub 1521 1521 1291; Mul 1291 757 1490; Mul 1083 15 1377; Add 1291 1291 1083; Sub 1521 1521 1291;
  Mul 1291 25 1521; Mul 1083 16 1377; Mul 1100 757 1372; Sub 1083 1083 1100; Mul 1100 755 1490;
  Mul 1371 15 1504; Add 1100 1100 1371; Add 1083 1083 1100; Mul 1100 32 1083; Sub 1291 1291 1100;
  Add 1291 1202 1291; Add 1418 1418 1291; Mul 1291 19 1418; Mul 1100 751 1508; Sub 1291 1291 1100;
  Mul 1100 763 1280; Mul 1371 19 1117; Mul 1702 752 1508; Sub 1371 1371 1702; Mul 1702 378 1371;
  Mul 1703 31 1702; Mul 1704 380 1587; Sub 1703 1703 1704; Mul 1371 430 1371; Mul 1704 28 1371;
  Mul 1504 433 1504; Sub 1704 1704 1504; Mul 1504 16 1704; Mul 1705 764 1372; Sub 1504 1504 1705;
  Mul 1705 766 1490; Mul 1377 433 1377; Mul 1706 26 1371; Sub 1377 1377 1706; Mul 1706 15 1377;
  Add 1705 1705 1706; Add 1504 1504 1705; Mul 1705 32 1371; Mul 1706 198 1521; Sub 1705 1705 1706;
  Add 1504 1504 1705; Add 1703 1703 1504; Mul 1504 35 1703; Add 1100 1100 1504; Add 1291 1291 1100;
  Add 1587 1587 1521; Mul 1521 48 1587; Add 1100 1322 1083; Mul 1504 19 1100; Mul 1705 765 1508;
  Sub 1504 1504 1705; Mul 1705 768 1280; Add 1706 1702 1371; Mul 1707 35 1706; Add 1705 1705 1707;
  Sub 1504 1504 1705; Mul 1705 55 1504; Sub 1521 1521 1705; Add 1291 1291 1521; Add 1018 1018 1291;
  Mul 1291 66 1018; Mul 1521 749 1035; Sub 1291 1291 1521; Mul 1521 762 1210; Mul 1322 380 1322;
  Mul 1702 24 1702; Sub 1322 1322 1702; Mul 1377 16 1377; Mul 1372 766 1372; Sub 1377 1377 1372;
  Mul 1490 764 1490; Mul 1704 15 1704; Add 1490 1490 1704; Sub 1377 1377 1490; Mul 1083 198 1083;
  Mul 1371 25 1371; Sub 1083 1083 1371; Add 1377 1377 1083; Add 1322 1322 1377; Mul 1377 62 1504;
  Mul 1706 19 1706; Mul 1083 768 1508; Sub 1706 1706 1083; Mul 1083 765 1280; Mul 1100 35 1100;
  Add 1083 1083 1100; Add 1706 1706 1083; Mul 1083 48 1706; Sub 1377 1377 1083; Add 1377 1322 1377;
  Mul 1117 323 1117; Mul 1083 47 1117; Sub 1377 1377 1083; Mul 1083 53 1377].
Definition casadi_f0_692 : list instruction := [
  Add 1521 1521 1083; Add 1291 1291 1521; Mul 1521 86 1504; Sub 1291 1291 1521; Add 1344 1344 1291;
  Mul 1291 9 1344; Add 1221 1221 1291; Mul 1377 66 1377; Mul 1291 762 1035; Sub 1377 1377 1291;
  Mul 1291 749 1210; Mul 1018 53 1018; Add 1291 1291 1018; Sub 1377 1377 1291; Mul 1291 91 1504;
  Add 1377 1377 1291; Mul 1498 269 1498; Mul 1291 81 1498; Sub 1377 1377 1291; Mul 1291 8 1377;
  Mul 1018 758 1636; Sub 1291 1291 1018; Add 1221 1221 1291; Mul 1504 102 1504; Add 1291 1117 1706;
  Mul 1018 66 1291; Mul 1521 770 1035; Sub 1018 1018 1521; Mul 1521 772 1210; Add 1083 1268 1587;
  Mul 1100 53 1083; Add 1521 1521 1100; Add 1018 1018 1521; Add 1521 1498 1018; Mul 1100 8 1521;
  Mul 1371 773 1636; Sub 1100 1100 1371; Mul 1371 776 1651; Mul 1083 66 1083; Mul 1035 772 1035;
  Sub 1083 1083 1035; Mul 1210 770 1210; Mul 1291 53 1291; Add 1210 1210 1291; Sub 1083 1083 1210;
  Add 1210 1631 1083; Mul 1291 9 1210; Add 1371 1371 1291; Sub 1100 1100 1371; Mul 1100 108 1100;
  Sub 1504 1504 1100; Add 1221 1221 1504; Add 1674 1674 1221; Mul 1674 114 1674; Mul 1612 740 1612;
  Sub 1674 1674 1612; Mul 1020 774 1020; Mul 1344 8 1344; Mul 1612 745 1636; Sub 1344 1344 1612;
  Mul 1612 758 1651; Mul 1377 9 1377; Add 1612 1612 1377; Sub 1344 1344 1612; Mul 1651 773 1651;
  Mul 1521 9 1521; Add 1651 1651 1521; Mul 1210 8 1210; Mul 1636 776 1636; Sub 1210 1210 1636;
  Add 1651 1651 1210; Mul 1210 108 1651; Add 1344 1344 1210; Mul 1591 212 1591; Mul 1210 107 1591;
  Sub 1344 1344 1210; Mul 1344 113 1344; Add 1020 1020 1344; Sub 1674 1674 1020; Add 1076 1076 1674;
  Mul 1674 210 1076; Sub 1303 1303 1674; Div 1674 1592 92; Mul 1020 1069 1290; Sub 1674 1674 1020;
  Mul 1020 779 1674; Add 1115 1115 1686; Add 1345 1345 1616; Sub 1115 1115 1345; Add 1681 1681 1284;
  Add 1365 1365 1543; Sub 1681 1681 1365; Add 1443 1443 1681; Sub 1115 1115 1443; Add 1115 1115 1352;
  Add 1654 1654 1049; Add 1427 1427 1089; Sub 1654 1654 1427; Add 1499 1499 1287; Add 1518 1518 1182;
  Add 1499 1499 1518; Add 1329 1329 1305; Add 1159 1159 1185; Sub 1329 1329 1159; Add 1499 1499 1329;
  Sub 1654 1654 1499; Add 1654 1654 1491; Add 1120 1120 1353; Add 1019 1019 1375; Sub 1120 1120 1019;
  Add 1036 1036 1237; Add 1639 1639 1349; Add 1036 1036 1639; Add 1417 1417 1447; Add 1662 1662 1624;
  Sub 1417 1417 1662; Add 1036 1036 1417; Sub 1120 1120 1036; Add 1120 1120 1449; Add 1601 1601 1416;
  Add 1473 1473 1143; Sub 1601 1601 1473; Add 1196 1196 1195; Add 1578 1578 1296; Add 1196 1196 1578;
  Add 1235 1235 1229; Add 1487 1487 1245; Sub 1235 1235 1487; Add 1196 1196 1235; Sub 1601 1601 1196;
  Add 1601 1601 1384; Add 1550 1550 1194; Add 1611 1611 1228; Sub 1550 1550 1611; Add 1244 1244 1522;
  Add 1440 1440 1189; Add 1244 1244 1440; Add 1295 1295 1093; Add 1219 1219 1588; Sub 1295 1295 1219;
  Add 1244 1244 1295; Sub 1550 1550 1244; Add 1550 1550 1176; Add 1601 1601 1550; Add 1120 1120 1601;
  Add 1654 1654 1120; Add 1115 1115 1654; Mul 1115 216 1115; Mul 1176 780 1325].
Definition casadi_f0_693 : list instruction := [
  Sub 1115 1115 1176; Mul 1176 781 1236; Add 1537 1537 1431; Add 1689 1689 1450; Sub 1537 1537 1689;
  Sub 1420 1420 1537; Add 1362 1362 1608; Add 1021 1021 1380; Sub 1362 1362 1021; Add 1420 1420 1362;
  Sub 1420 1420 1030; Add 1452 1452 1647; Add 1555 1555 1206; Sub 1452 1452 1555; Add 1444 1444 1466;
  Add 1330 1330 1165; Add 1444 1444 1330; Add 1200 1200 1565; Add 1677 1677 1486; Sub 1200 1200 1677;
  Add 1444 1444 1200; Sub 1452 1452 1444; Sub 1452 1452 1680; Add 1665 1665 1455; Add 1203 1203 1042;
  Sub 1665 1665 1203; Add 1187 1187 1205; Add 1096 1096 1632; Add 1187 1187 1096; Add 1579 1579 1123;
  Add 1102 1102 1484; Sub 1579 1579 1102; Add 1187 1187 1579; Sub 1665 1665 1187; Sub 1665 1665 1135;
  Add 1034 1034 1633; Add 1320 1320 1482; Sub 1034 1034 1320; Add 1656 1656 1140; Add 1156 1156 1688;
  Add 1656 1656 1156; Add 1673 1673 1378; Add 1509 1509 1457; Sub 1673 1673 1509; Add 1656 1656 1673;
  Sub 1034 1034 1656; Sub 1034 1034 1055; Add 1191 1191 1406; Add 1297 1297 1657; Sub 1191 1191 1297;
  Add 1350 1350 1562; Add 1574 1574 1483; Add 1350 1350 1574; Add 1374 1374 1134; Add 1628 1628 1412;
  Sub 1374 1374 1628; Add 1350 1350 1374; Sub 1191 1191 1350; Sub 1191 1191 1173; Add 1034 1034 1191;
  Add 1665 1665 1034; Add 1452 1452 1665; Add 1420 1420 1452; Mul 1420 215 1420; Add 1176 1176 1420;
  Sub 1115 1115 1176; Sub 1213 1213 1308; Sub 1533 1533 1698; Sub 1149 1149 1075; Sub 1675 1675 1277;
  Sub 1538 1538 1526; Add 1675 1675 1538; Add 1149 1149 1675; Add 1533 1533 1149; Add 1213 1213 1533;
  Mul 1213 540 1213; Mul 1308 625 1048; Sub 1213 1213 1308; Mul 1308 651 1157; Sub 1400 1400 1445;
  Add 1583 1583 1347; Add 1567 1567 1174; Add 1272 1272 1017; Add 1151 1151 1413; Add 1272 1272 1151;
  Add 1567 1567 1272; Add 1583 1583 1567; Add 1400 1400 1583; Mul 1400 544 1400; Add 1308 1308 1400;
  Add 1213 1213 1308; Sub 1115 1115 1213; Mul 1115 0 1115; Mul 1213 23 1435; Add 1115 1115 1213;
  Mul 1441 508 1441; Mul 1213 534 1476; Add 1441 1441 1213; Add 1172 1172 1458; Mul 1696 482 1696;
  Mul 1602 511 1602; Add 1696 1696 1602; Sub 1172 1172 1696; Add 1389 1389 1172; Mul 1150 490 1150;
  Mul 1607 514 1607; Add 1150 1150 1607; Sub 1389 1389 1150; Add 1223 1223 1389; Mul 1540 498 1540;
  Mul 1475 518 1475; Add 1540 1540 1475; Sub 1223 1223 1540; Add 1265 1265 1223; Mul 1116 522 1116;
  Mul 1323 506 1323; Sub 1116 1116 1323; Sub 1265 1265 1116; Mul 1116 526 1265; Mul 1323 784 1132;
  Add 1116 1116 1323; Add 1493 1493 1421; Mul 1559 1304 1559; Add 1032 1032 1559; Mul 1032 20 1032;
  Add 1493 1493 1032; Add 1097 1097 1493; Mul 1581 1153 1581; Add 1217 1217 1581; Mul 1217 37 1217;
  Add 1097 1097 1217; Add 1697 1697 1097; Mul 1148 1212 1148; Add 1676 1676 1148; Mul 1676 80 1676;
  Add 1697 1697 1676; Add 1139 1139 1697; Mul 1415 1293 1415; Add 1590 1590 1415; Mul 1590 100 1590;
  Sub 1139 1139 1590; Mul 1139 536 1139; Mul 1590 496 1456; Add 1139 1139 1590; Add 1116 1116 1139;
  Sub 1441 1441 1116; Mul 1116 546 1251; Mul 1139 538 1369; Add 1116 1116 1139].
Definition casadi_f0_694 : list instruction := [
  Mul 1139 791 1114; Mul 1488 215 1488; Mul 1590 222 1236; Add 1488 1488 1590; Mul 1084 216 1084;
  Mul 1590 229 1325; Sub 1084 1084 1590; Sub 1488 1488 1084; Mul 1084 540 1130; Mul 1590 227 1048;
  Sub 1084 1084 1590; Mul 1590 544 1122; Mul 1676 219 1157; Add 1590 1590 1676; Sub 1084 1084 1590;
  Add 1488 1488 1084; Mul 1084 526 1246; Mul 1590 543 1132; Add 1084 1084 1590; Mul 1114 536 1114;
  Mul 1590 537 1456; Add 1114 1114 1590; Sub 1084 1084 1114; Sub 1084 1488 1084; Mul 1084 141 1084;
  Mul 1114 537 1084; Add 1139 1139 1114; Sub 1116 1116 1139; Add 1441 1441 1116; Mul 1116 556 1580;
  Mul 1271 560 1271; Add 1139 1116 1271; Sub 1560 1139 1560; Sub 1557 1281 1557; Sub 1649 1086 1649;
  Add 1557 1557 1649; Add 1271 1271 1116; Sub 1144 1144 1271; Add 1557 1557 1144; Sub 1560 1560 1557;
  Mul 1557 570 1340; Mul 1181 574 1181; Add 1144 1557 1181; Sub 1109 1144 1109; Sub 1451 1451 1582;
  Sub 1162 1162 1551; Add 1451 1451 1162; Add 1181 1181 1557; Sub 1283 1283 1181; Add 1451 1451 1283;
  Sub 1109 1109 1451; Mul 1451 584 1479; Mul 1545 588 1545; Add 1283 1451 1545; Sub 1679 1283 1679;
  Sub 1256 1256 1177; Sub 1496 1496 1617; Add 1256 1256 1496; Add 1545 1545 1451; Sub 1161 1161 1545;
  Add 1256 1256 1161; Sub 1679 1679 1256; Mul 1256 597 1684; Mul 1701 601 1701; Add 1161 1256 1701;
  Sub 1179 1161 1179; Sub 1077 1077 1164; Sub 1436 1436 1480; Add 1077 1077 1436; Add 1701 1701 1256;
  Sub 1694 1694 1701; Add 1077 1077 1694; Sub 1179 1179 1077; Mul 1077 610 1141; Mul 1568 614 1568;
  Add 1694 1077 1568; Sub 1512 1694 1512; Sub 1360 1360 1103; Sub 1683 1683 1687; Add 1360 1360 1683;
  Add 1568 1568 1077; Sub 1211 1211 1568; Add 1360 1360 1211; Sub 1512 1512 1360; Add 1179 1179 1512;
  Add 1679 1679 1179; Add 1109 1109 1679; Add 1560 1560 1109; Mul 1560 216 1560; Mul 1360 251 1325;
  Sub 1560 1560 1360; Mul 1360 230 1113; Mul 1247 225 1247; Add 1211 1360 1247; Mul 1513 231 1513;
  Mul 1077 223 1667; Sub 1513 1513 1077; Sub 1211 1211 1513; Mul 1586 560 1586; Mul 1077 553 1580;
  Add 1683 1586 1077; Mul 1312 244 1312; Mul 1410 248 1410; Add 1687 1312 1410; Sub 1683 1683 1687;
  Sub 1211 1211 1683; Mul 1580 558 1580; Mul 1175 560 1175; Add 1683 1580 1175; Mul 1593 243 1593;
  Mul 1517 249 1517; Add 1687 1593 1517; Sub 1683 1683 1687; Add 1211 1211 1683; Mul 1604 219 1604;
  Mul 1122 239 1122; Add 1604 1604 1122; Mul 1226 227 1226; Mul 1130 246 1130; Add 1226 1226 1130;
  Add 1604 1604 1226; Mul 1556 467 1556; Mul 1087 525 1087; Sub 1556 1556 1087; Add 1604 1604 1556;
  Mul 1528 231 1528; Mul 1556 559 1667; Sub 1528 1528 1556; Mul 1556 616 1113; Mul 1495 225 1495;
  Add 1556 1556 1495; Add 1528 1528 1556; Add 1604 1604 1528; Mul 1604 213 1604; Sub 1211 1211 1604;
  Mul 1528 572 1340; Mul 1118 574 1118; Add 1556 1528 1118; Mul 1383 284 1383; Mul 1074 258 1074;
  Add 1495 1383 1074; Sub 1556 1556 1495; Mul 1495 297 1147; Mul 1087 271 1154; Add 1226 1495 1087;
  Mul 1130 282 1576; Mul 1122 300 1341; Add 1683 1130 1122; Add 1226 1226 1683].
Definition casadi_f0_695 : list instruction := [
  Mul 1038 574 1038; Mul 1340 567 1340; Add 1683 1038 1340; Mul 1338 279 1338; Mul 1515 276 1515;
  Add 1687 1338 1515; Sub 1683 1683 1687; Add 1226 1226 1683; Sub 1556 1556 1226; Mul 1209 255 1209;
  Mul 1226 280 1207; Add 1209 1209 1226; Mul 1598 278 1598; Mul 1226 266 1111; Add 1598 1598 1226;
  Add 1209 1209 1598; Mul 1571 296 1571; Mul 1158 472 1158; Add 1571 1571 1158; Add 1209 1209 1571;
  Mul 1571 573 1341; Mul 1396 282 1396; Add 1571 1571 1396; Mul 1396 617 1147; Mul 1376 271 1376;
  Add 1396 1396 1376; Sub 1571 1571 1396; Add 1209 1209 1571; Mul 1209 213 1209; Sub 1556 1556 1209;
  Mul 1571 586 1479; Mul 1403 588 1403; Add 1396 1571 1403; Mul 1663 338 1663; Mul 1253 312 1253;
  Add 1376 1663 1253; Sub 1396 1396 1376; Mul 1376 351 1270; Mul 1158 325 1391; Add 1598 1376 1158;
  Mul 1226 336 1275; Mul 1683 354 1399; Add 1687 1226 1683; Add 1598 1598 1687; Mul 1664 588 1664;
  Mul 1479 581 1479; Add 1687 1664 1479; Mul 1643 333 1643; Mul 1589 330 1589; Add 1103 1643 1589;
  Sub 1687 1687 1103; Add 1598 1598 1687; Sub 1396 1396 1598; Mul 1668 309 1668; Mul 1598 334 1432;
  Add 1668 1668 1598; Mul 1511 332 1511; Mul 1598 320 1233; Add 1511 1511 1598; Add 1668 1668 1511;
  Mul 1539 349 1539; Mul 1313 474 1313; Add 1539 1539 1313; Add 1668 1668 1539; Mul 1539 587 1399;
  Mul 1279 336 1279; Add 1539 1539 1279; Mul 1279 619 1270; Mul 1315 325 1315; Add 1279 1279 1315;
  Sub 1539 1539 1279; Add 1668 1668 1539; Mul 1668 213 1668; Sub 1396 1396 1668; Mul 1539 599 1684;
  Mul 1163 601 1163; Add 1279 1539 1163; Mul 1193 393 1193; Mul 1429 366 1429; Add 1315 1193 1429;
  Sub 1279 1279 1315; Mul 1315 406 1274; Mul 1313 381 1167; Add 1511 1315 1313; Mul 1598 391 1230;
  Mul 1687 409 1652; Add 1103 1598 1687; Add 1511 1511 1103; Mul 1394 601 1394; Mul 1684 594 1684;
  Add 1103 1394 1684; Mul 1671 388 1671; Mul 1595 385 1595; Add 1256 1671 1595; Sub 1103 1103 1256;
  Add 1511 1511 1103; Sub 1279 1279 1511; Mul 1471 363 1471; Mul 1511 389 1438; Add 1471 1471 1511;
  Mul 1216 387 1216; Mul 1511 374 1613; Add 1216 1216 1511; Add 1471 1471 1216; Mul 1125 405 1125;
  Mul 1425 476 1425; Add 1125 1125 1425; Add 1471 1471 1125; Mul 1125 600 1652; Mul 1527 391 1527;
  Add 1125 1125 1527; Mul 1527 621 1274; Mul 1699 381 1699; Add 1527 1527 1699; Sub 1125 1125 1527;
  Add 1471 1471 1125; Mul 1471 213 1471; Sub 1279 1279 1471; Mul 1125 612 1141; Mul 1469 614 1469;
  Add 1527 1125 1469; Mul 1644 447 1644; Mul 1659 420 1659; Add 1699 1644 1659; Sub 1527 1527 1699;
  Mul 1699 460 1474; Mul 1425 434 1263; Add 1216 1699 1425; Mul 1511 445 1319; Mul 1103 463 1367;
  Add 1256 1511 1103; Add 1216 1216 1256; Mul 1240 614 1240; Mul 1141 607 1141; Add 1256 1240 1141;
  Mul 1311 442 1311; Mul 1227 439 1227; Add 1436 1311 1227; Sub 1256 1256 1436; Add 1216 1216 1256;
  Sub 1527 1527 1216; Mul 1216 417 1142; Mul 1256 443 1241; Add 1216 1216 1256; Mul 1256 441 1105;
  Mul 1436 426 1261; Add 1256 1256 1436; Add 1216 1216 1256; Mul 1256 459 1523].
Definition casadi_f0_696 : list instruction := [
  Mul 1641 478 1641; Add 1256 1256 1641; Add 1216 1216 1256; Mul 1256 611 1367; Mul 1137 445 1137;
  Add 1256 1256 1137; Mul 1137 623 1474; Mul 1238 434 1238; Add 1137 1137 1238; Sub 1256 1256 1137;
  Add 1216 1216 1256; Mul 1216 213 1216; Sub 1527 1527 1216; Add 1279 1279 1527; Add 1396 1396 1279;
  Add 1556 1556 1396; Add 1211 1211 1556; Mul 1211 215 1211; Mul 1256 470 1236; Add 1211 1211 1256;
  Sub 1560 1560 1211; Mul 1211 225 1682; Mul 1256 624 1113; Add 1137 1211 1256; Mul 1238 231 1088;
  Mul 1641 650 1667; Sub 1238 1238 1641; Sub 1137 1137 1238; Mul 1502 213 1502; Add 1641 1137 1502;
  Mul 1341 655 1341; Mul 1549 282 1549; Add 1436 1341 1549; Sub 1436 1503 1436; Mul 1082 271 1082;
  Mul 1147 629 1147; Add 1480 1082 1147; Add 1436 1436 1480; Mul 1171 213 1171; Sub 1480 1436 1171;
  Mul 1399 659 1399; Mul 1388 336 1388; Add 1164 1399 1388; Sub 1164 1110 1164; Mul 1302 325 1302;
  Mul 1270 634 1270; Add 1451 1302 1270; Add 1164 1164 1451; Mul 1024 213 1024; Sub 1451 1164 1024;
  Mul 1652 663 1652; Mul 1634 391 1634; Add 1496 1652 1634; Sub 1496 1351 1496; Mul 1104 381 1104;
  Mul 1274 639 1274; Add 1617 1104 1274; Add 1496 1496 1617; Mul 1129 213 1129; Sub 1617 1496 1129;
  Mul 1177 667 1367; Mul 1289 445 1289; Add 1557 1177 1289; Sub 1557 1618 1557; Mul 1448 434 1448;
  Mul 1162 644 1474; Add 1551 1448 1162; Add 1557 1557 1551; Mul 1439 213 1439; Sub 1551 1557 1439;
  Add 1617 1617 1551; Add 1451 1451 1617; Add 1480 1480 1451; Add 1641 1641 1480; Mul 1641 540 1641;
  Mul 1582 250 1048; Sub 1641 1641 1582; Mul 1088 225 1088; Mul 1113 650 1113; Add 1582 1088 1113;
  Mul 1682 231 1682; Mul 1667 624 1667; Sub 1682 1682 1667; Add 1113 1113 1088; Mul 1672 242 1672;
  Mul 1094 626 1094; Sub 1672 1672 1094; Add 1094 1113 1672; Add 1088 1682 1094; Sub 1088 1582 1088;
  Add 1582 1582 1672; Add 1682 1682 1582; Sub 1113 1113 1682; Sub 1088 1088 1113; Sub 1585 1585 1584;
  Sub 1401 1401 1594; Sub 1585 1585 1401; Sub 1660 1660 1481; Sub 1243 1243 1693; Sub 1660 1660 1243;
  Sub 1548 1548 1453; Sub 1535 1535 1454; Sub 1548 1548 1535; Sub 1354 1354 1507; Sub 1310 1310 1218;
  Sub 1354 1354 1310; Add 1548 1548 1354; Add 1660 1660 1548; Add 1585 1585 1660; Add 1088 1088 1585;
  Mul 1310 544 1088; Mul 1218 806 1157; Add 1310 1310 1218; Add 1641 1641 1310; Sub 1560 1560 1641;
  Add 1441 1441 1560; Mul 1441 216 1441; Mul 1560 652 1325; Sub 1441 1441 1560; Mul 1560 804 1236;
  Mul 1468 508 1468; Mul 1641 521 1476; Add 1468 1468 1641; Add 1489 1489 1559; Mul 1489 20 1489;
  Add 1285 1285 1316; Sub 1489 1489 1285; Sub 1124 1489 1124; Add 1326 1326 1581; Mul 1326 37 1326;
  Add 1124 1124 1326; Sub 1355 1124 1355; Add 1188 1188 1148; Mul 1188 80 1188; Add 1355 1355 1188;
  Add 1494 1494 1355; Sub 1047 1047 1415; Mul 1047 100 1047; Add 1494 1494 1047; Mul 1494 526 1494;
  Mul 1047 499 1132; Add 1494 1494 1047; Mul 1265 536 1265; Mul 1047 784 1456; Add 1265 1265 1047;
  Add 1494 1494 1265; Sub 1468 1468 1494; Mul 1246 791 1246; Mul 1084 543 1084].
Definition casadi_f0_697 : list instruction := [
  Add 1246 1246 1084; Mul 1251 539 1251; Mul 1084 538 1382; Add 1251 1251 1084; Sub 1246 1246 1251;
  Add 1468 1468 1246; Add 1247 1247 1360; Sub 1247 1247 1513; Add 1517 1517 1593; Add 1175 1175 1580;
  Sub 1517 1517 1175; Sub 1247 1247 1517; Add 1410 1410 1312; Add 1077 1077 1586; Sub 1410 1410 1077;
  Add 1247 1247 1410; Add 1247 1247 1604; Add 1515 1515 1338; Add 1340 1340 1038; Sub 1515 1515 1340;
  Add 1122 1122 1130; Add 1087 1087 1495; Add 1122 1122 1087; Add 1074 1074 1383; Add 1118 1118 1528;
  Sub 1074 1074 1118; Add 1122 1122 1074; Sub 1515 1515 1122; Add 1515 1515 1209; Add 1589 1589 1643;
  Add 1479 1479 1664; Sub 1589 1589 1479; Add 1683 1683 1226; Add 1158 1158 1376; Add 1683 1683 1158;
  Add 1253 1253 1663; Add 1403 1403 1571; Sub 1253 1253 1403; Add 1683 1683 1253; Sub 1589 1589 1683;
  Add 1589 1589 1668; Add 1595 1595 1671; Add 1684 1684 1394; Sub 1595 1595 1684; Add 1687 1687 1598;
  Add 1313 1313 1315; Add 1687 1687 1313; Add 1429 1429 1193; Add 1163 1163 1539; Sub 1429 1429 1163;
  Add 1687 1687 1429; Sub 1595 1595 1687; Add 1595 1595 1471; Add 1227 1227 1311; Add 1141 1141 1240;
  Sub 1227 1227 1141; Add 1103 1103 1511; Add 1425 1425 1699; Add 1103 1103 1425; Add 1659 1659 1644;
  Add 1469 1469 1125; Sub 1659 1659 1469; Add 1103 1103 1659; Sub 1227 1227 1103; Add 1227 1227 1216;
  Add 1595 1595 1227; Add 1589 1589 1595; Add 1515 1515 1589; Add 1247 1247 1515; Mul 1247 216 1247;
  Mul 1216 507 1325; Sub 1247 1247 1216; Add 1086 1086 1281; Sub 1271 1271 1691; Sub 1086 1086 1271;
  Sub 1547 1547 1139; Add 1086 1086 1547; Add 1239 1239 1317; Sub 1181 1181 1695; Sub 1239 1239 1181;
  Sub 1215 1215 1144; Add 1239 1239 1215; Add 1566 1566 1252; Sub 1545 1545 1609; Sub 1566 1566 1545;
  Sub 1529 1529 1283; Add 1566 1566 1529; Add 1393 1393 1146; Sub 1701 1701 1622; Sub 1393 1393 1701;
  Sub 1465 1465 1161; Add 1393 1393 1465; Add 1564 1564 1610; Sub 1568 1568 1199; Sub 1564 1564 1568;
  Sub 1324 1324 1694; Add 1564 1564 1324; Add 1393 1393 1564; Add 1566 1566 1393; Add 1239 1239 1566;
  Add 1086 1086 1239; Mul 1086 215 1086; Mul 1324 226 1236; Add 1086 1086 1324; Sub 1247 1247 1086;
  Sub 1582 1582 1094; Sub 1655 1655 1060; Sub 1186 1186 1318; Sub 1666 1666 1152; Sub 1346 1346 1231;
  Add 1666 1666 1346; Add 1186 1186 1666; Add 1655 1655 1186; Add 1582 1582 1655; Mul 1231 540 1582;
  Mul 1152 805 1048; Sub 1231 1231 1152; Add 1256 1256 1211; Sub 1238 1238 1256; Sub 1256 1238 1502;
  Add 1549 1549 1341; Add 1147 1147 1082; Add 1503 1503 1147; Sub 1549 1549 1503; Add 1503 1549 1171;
  Add 1388 1388 1399; Add 1270 1270 1302; Add 1110 1110 1270; Sub 1388 1388 1110; Add 1110 1388 1024;
  Add 1634 1634 1652; Add 1274 1274 1104; Add 1351 1351 1274; Sub 1634 1634 1351; Add 1351 1634 1129;
  Add 1289 1289 1177; Add 1162 1162 1448; Add 1618 1618 1162; Sub 1289 1289 1618; Add 1618 1289 1439;
  Add 1351 1351 1618; Add 1110 1110 1351; Add 1503 1503 1110; Add 1256 1256 1503; Mul 1256 544 1256;
  Mul 1162 693 1157; Add 1256 1256 1162; Add 1231 1231 1256; Sub 1247 1247 1231].
Definition casadi_f0_698 : list instruction := [
  Add 1468 1468 1247; Mul 1468 215 1468; Add 1560 1560 1468; Sub 1441 1441 1560; Sub 1137 1137 1502;
  Add 1436 1436 1171; Add 1164 1164 1024; Add 1496 1496 1129; Add 1557 1557 1439; Add 1496 1496 1557;
  Add 1164 1164 1496; Add 1436 1436 1164; Add 1137 1137 1436; Mul 1137 216 1137; Mul 1560 305 1325;
  Sub 1137 1137 1560; Mul 1582 215 1582; Mul 1560 805 1236; Add 1582 1582 1560; Sub 1137 1137 1582;
  Add 1369 1369 1137; Mul 1369 540 1369; Mul 1137 307 1048; Sub 1369 1369 1137; Mul 1137 360 1157;
  Mul 1088 216 1088; Mul 1582 806 1325; Sub 1088 1088 1582; Add 1238 1238 1502; Sub 1549 1549 1171;
  Sub 1388 1388 1024; Sub 1634 1634 1129; Sub 1289 1289 1439; Add 1634 1634 1289; Add 1388 1388 1634;
  Add 1549 1549 1388; Add 1238 1238 1549; Mul 1238 215 1238; Mul 1439 700 1236; Add 1238 1238 1439;
  Sub 1088 1088 1238; Add 1382 1382 1088; Mul 1382 544 1382; Add 1137 1137 1382; Add 1369 1369 1137;
  Sub 1441 1441 1369; Mul 1441 1 1441; Mul 1369 469 1463; Add 1441 1441 1369; Add 1115 1115 1441;
  Mul 1441 602 1223; Mul 1369 783 1541; Add 1441 1441 1369; Mul 1369 670 1697; Mul 1137 488 1606;
  Add 1369 1369 1137; Add 1441 1441 1369; Mul 1369 671 1460; Mul 1137 532 1575; Add 1369 1369 1137;
  Sub 1441 1441 1369; Mul 1369 679 1524; Mul 1137 523 1422; Add 1369 1369 1137; Mul 1137 796 1300;
  Mul 1207 680 1207; Mul 1382 255 1022; Add 1207 1207 1382; Mul 1111 674 1111; Mul 1382 278 1363;
  Sub 1111 1111 1382; Sub 1207 1207 1111; Mul 1426 216 1426; Mul 1111 294 1325; Sub 1426 1426 1111;
  Mul 1145 215 1145; Mul 1111 299 1236; Add 1145 1145 1111; Add 1426 1426 1145; Sub 1207 1207 1426;
  Mul 1426 670 1300; Mul 1145 502 1606; Add 1426 1426 1145; Mul 1145 602 1278; Mul 1111 505 1541;
  Add 1145 1145 1111; Sub 1426 1426 1145; Sub 1426 1207 1426; Mul 1426 672 1426; Mul 1145 502 1426;
  Add 1137 1137 1145; Sub 1369 1369 1137; Add 1441 1441 1369; Mul 1369 674 1480; Mul 1137 794 1363;
  Sub 1369 1369 1137; Mul 1137 680 1585; Mul 1145 689 1022; Add 1111 1137 1145; Add 1370 1370 1690;
  Add 1477 1477 1442; Add 1154 1154 1477; Sub 1370 1370 1154; Add 1154 1370 1347; Add 1079 1079 1570;
  Add 1234 1234 1180; Add 1391 1391 1234; Sub 1079 1079 1391; Add 1391 1079 1174; Add 1563 1563 1335;
  Add 1348 1348 1433; Add 1167 1167 1348; Sub 1563 1563 1167; Add 1167 1563 1017; Add 1411 1411 1627;
  Add 1343 1343 1051; Add 1263 1263 1343; Sub 1411 1411 1263; Add 1263 1411 1413; Add 1167 1167 1263;
  Add 1391 1391 1167; Add 1154 1154 1391; Mul 1154 676 1154; Mul 1343 410 1621; Add 1154 1154 1343;
  Sub 1111 1111 1154; Add 1369 1369 1111; Mul 1111 215 1556; Mul 1154 461 1236; Add 1111 1111 1154;
  Mul 1109 216 1109; Mul 1154 277 1325; Sub 1109 1109 1154; Sub 1111 1111 1109; Add 1369 1369 1111;
  Add 1441 1441 1369; Mul 1441 216 1441; Mul 1369 707 1325; Sub 1441 1441 1369; Mul 1369 793 1236;
  Mul 1111 602 1355; Mul 1154 491 1541; Add 1111 1111 1154; Mul 1154 670 1223; Mul 1343 783 1606;
  Add 1154 1154 1343; Add 1111 1111 1154; Mul 1154 671 1542; Mul 1343 517 1575].
Definition casadi_f0_699 : list instruction := [
  Add 1154 1154 1343; Sub 1111 1111 1154; Mul 1154 796 1278; Mul 1343 505 1426; Add 1154 1154 1343;
  Mul 1343 675 1524; Mul 1051 523 1258; Add 1343 1343 1051; Sub 1154 1154 1343; Add 1111 1111 1154;
  Mul 1154 674 1655; Mul 1343 682 1363; Sub 1154 1154 1343; Mul 1343 680 1503; Mul 1051 808 1022;
  Add 1343 1343 1051; Add 1645 1645 1461; Sub 1576 1576 1645; Add 1620 1620 1459; Add 1576 1576 1620;
  Sub 1620 1576 1698; Add 1292 1292 1358; Sub 1275 1275 1292; Add 1510 1510 1225; Add 1275 1275 1510;
  Sub 1510 1275 1075; Add 1282 1282 1242; Sub 1230 1230 1282; Add 1037 1037 1402; Add 1230 1230 1037;
  Sub 1037 1230 1277; Add 1692 1692 1467; Sub 1319 1319 1692; Add 1520 1520 1554; Add 1319 1319 1520;
  Sub 1520 1319 1526; Add 1037 1037 1520; Add 1510 1510 1037; Add 1620 1620 1510; Mul 1620 676 1620;
  Mul 1554 301 1621; Add 1620 1620 1554; Sub 1343 1343 1620; Add 1343 1154 1343; Mul 1239 215 1239;
  Mul 1620 303 1236; Add 1554 1239 1620; Mul 1692 216 1515; Mul 1467 468 1325; Sub 1692 1692 1467;
  Sub 1554 1554 1692; Add 1343 1343 1554; Add 1111 1111 1343; Mul 1111 215 1111; Add 1369 1369 1111;
  Sub 1111 1441 1369; Mul 1655 215 1655; Mul 1343 682 1236; Add 1554 1655 1343; Mul 1692 216 1436;
  Mul 1467 792 1325; Sub 1692 1692 1467; Sub 1554 1554 1692; Add 1422 1422 1554; Mul 1554 540 1422;
  Mul 1692 233 1048; Sub 1554 1554 1692; Mul 1692 789 1157; Mul 1467 215 1549; Mul 1402 686 1236;
  Add 1467 1467 1402; Mul 1585 216 1585; Mul 1402 689 1325; Sub 1585 1585 1402; Sub 1467 1467 1585;
  Add 1258 1258 1467; Mul 1467 544 1258; Add 1692 1692 1467; Add 1554 1554 1692; Sub 1111 1111 1554;
  Mul 1111 2 1111; Mul 1554 285 1497; Add 1111 1111 1554; Add 1115 1115 1111; Mul 1111 677 1642;
  Mul 1554 530 1098; Add 1111 1111 1554; Mul 1554 706 1389; Mul 1692 782 1106; Add 1554 1554 1692;
  Mul 1692 712 1097; Mul 1467 481 1392; Add 1692 1692 1467; Add 1554 1554 1692; Sub 1111 1111 1554;
  Mul 1554 719 1599; Mul 1692 519 1099; Add 1554 1554 1692; Mul 1692 709 1536; Mul 1121 216 1121;
  Mul 1467 348 1325; Sub 1121 1121 1467; Mul 1525 215 1525; Mul 1467 353 1236; Add 1525 1525 1467;
  Add 1121 1121 1525; Mul 1233 714 1233; Mul 1525 332 1700; Add 1233 1233 1525; Mul 1432 718 1432;
  Mul 1525 309 1257; Add 1432 1432 1525; Sub 1233 1233 1432; Add 1121 1121 1233; Mul 1233 706 1506;
  Mul 1432 497 1106; Add 1233 1233 1432; Mul 1432 712 1536; Mul 1525 494 1392; Add 1432 1432 1525;
  Sub 1233 1233 1432; Sub 1233 1121 1233; Mul 1233 156 1233; Mul 1432 494 1233; Add 1692 1692 1432;
  Sub 1554 1554 1692; Add 1111 1111 1554; Mul 1554 716 1391; Mul 1692 403 1327; Add 1554 1554 1692;
  Mul 1692 718 1660; Mul 1432 696 1257; Add 1525 1692 1432; Sub 1554 1554 1525; Mul 1525 714 1451;
  Mul 1467 797 1700; Add 1525 1525 1467; Sub 1554 1554 1525; Mul 1679 216 1679; Mul 1525 331 1325;
  Sub 1679 1679 1525; Mul 1525 215 1396; Mul 1467 414 1236; Add 1525 1525 1467; Sub 1525 1679 1525;
  Add 1554 1554 1525; Add 1111 1111 1554; Mul 1111 216 1111; Mul 1554 790 1325].
Definition casadi_f0_700 : list instruction := [
  Sub 1111 1111 1554; Mul 1554 704 1236; Mul 1525 677 1552; Mul 1467 513 1098; Add 1525 1525 1467;
  Mul 1467 706 1124; Mul 1402 483 1106; Add 1467 1467 1402; Mul 1402 712 1389; Mul 1282 782 1392;
  Add 1402 1402 1282; Add 1467 1467 1402; Sub 1525 1525 1467; Mul 1467 709 1506; Mul 1402 497 1233;
  Add 1467 1467 1402; Mul 1402 711 1599; Mul 1282 519 1558; Add 1402 1402 1282; Sub 1467 1467 1402;
  Add 1525 1525 1467; Mul 1467 716 1510; Mul 1402 293 1327; Add 1467 1467 1402; Mul 1402 718 1110;
  Mul 1282 415 1257; Add 1402 1402 1282; Sub 1467 1467 1402; Mul 1402 714 1186; Mul 1282 685 1700;
  Add 1242 1402 1282; Sub 1467 1467 1242; Mul 1242 216 1589; Mul 1225 416 1325; Sub 1242 1242 1225;
  Mul 1566 215 1566; Mul 1225 357 1236; Add 1292 1566 1225; Sub 1242 1242 1292; Add 1467 1467 1242;
  Add 1525 1525 1467; Mul 1525 215 1525; Add 1554 1554 1525; Sub 1525 1111 1554; Mul 1467 216 1164;
  Mul 1242 795 1325; Sub 1467 1467 1242; Mul 1186 215 1186; Mul 1242 685 1236; Add 1292 1186 1242;
  Sub 1467 1467 1292; Add 1099 1099 1467; Mul 1467 540 1099; Mul 1292 697 1048; Sub 1467 1467 1292;
  Mul 1292 695 1157; Mul 1660 216 1660; Mul 1358 696 1325; Sub 1660 1660 1358; Mul 1358 215 1388;
  Mul 1459 448 1236; Add 1358 1358 1459; Sub 1358 1660 1358; Add 1558 1558 1358; Mul 1358 544 1558;
  Add 1292 1292 1358; Add 1467 1467 1292; Sub 1467 1525 1467; Mul 1467 3 1467; Mul 1292 691 1131;
  Add 1467 1467 1292; Add 1115 1115 1467; Mul 1467 715 1172; Mul 1292 606 1090; Add 1467 1467 1292;
  Mul 1292 721 1493; Mul 1358 786 1192; Add 1292 1292 1358; Add 1467 1467 1292; Mul 1292 722 1267;
  Mul 1358 528 1505; Add 1292 1292 1358; Add 1467 1467 1292; Mul 1292 730 1016; Mul 1358 515 1386;
  Add 1292 1292 1358; Mul 1358 683 1224; Mul 1232 310 1232; Mul 1459 408 1398; Add 1232 1232 1459;
  Mul 1640 327 1640; Mul 1459 404 1434; Add 1640 1640 1459; Sub 1232 1232 1640; Mul 1438 731 1438;
  Mul 1640 363 1501; Add 1438 1438 1640; Mul 1613 725 1613; Mul 1640 387 1407; Add 1613 1613 1640;
  Sub 1438 1438 1613; Add 1232 1232 1438; Mul 1438 721 1224; Mul 1613 486 1192; Add 1438 1438 1613;
  Mul 1613 715 1126; Mul 1640 489 1090; Add 1613 1613 1640; Sub 1438 1438 1613; Sub 1438 1232 1438;
  Mul 1438 723 1438; Mul 1613 486 1438; Add 1358 1358 1613; Sub 1292 1292 1358; Add 1467 1467 1292;
  Mul 1292 725 1617; Mul 1358 800 1407; Add 1292 1292 1358; Mul 1358 731 1548; Mul 1613 703 1501;
  Add 1640 1358 1613; Mul 1459 727 1167; Mul 1645 306 1423; Add 1459 1459 1645; Add 1640 1640 1459;
  Add 1292 1292 1640; Mul 1640 310 1279; Mul 1459 361 1398; Add 1640 1640 1459; Mul 1179 327 1179;
  Mul 1459 386 1434; Add 1645 1179 1459; Mul 1461 318 1601; Mul 1051 59 1670; Add 1461 1461 1051;
  Add 1645 1645 1461; Add 1640 1640 1645; Sub 1292 1292 1640; Add 1467 1467 1292; Mul 1292 216 1467;
  Mul 1640 690 1325; Sub 1292 1292 1640; Mul 1640 807 1236; Mul 1645 715 1489; Mul 1461 705 1090;
  Add 1645 1645 1461; Mul 1461 721 1172; Mul 1051 606 1192; Add 1461 1461 1051].
Definition casadi_f0_701 : list instruction := [
  Add 1645 1645 1461; Mul 1461 722 1053; Mul 1051 510 1505; Add 1461 1461 1051; Add 1645 1645 1461;
  Mul 1461 683 1126; Mul 1051 489 1438; Add 1461 1461 1051; Mul 1051 726 1016; Mul 1627 515 1577;
  Add 1051 1051 1627; Sub 1461 1461 1051; Add 1645 1645 1461; Mul 1461 725 1666; Mul 1051 692 1407;
  Add 1627 1461 1051; Mul 1348 731 1351; Mul 1433 465 1501; Add 1348 1348 1433; Mul 1433 727 1037;
  Mul 1335 785 1423; Add 1433 1433 1335; Add 1348 1348 1433; Add 1627 1627 1348; Mul 1393 310 1393;
  Mul 1348 412 1398; Add 1433 1393 1348; Mul 1335 327 1595; Mul 1234 407 1434; Add 1335 1335 1234;
  Mul 1234 318 1034; Mul 1180 580 1670; Add 1234 1234 1180; Add 1335 1335 1234; Add 1433 1433 1335;
  Sub 1627 1627 1433; Add 1645 1645 1627; Mul 1627 215 1645; Add 1640 1640 1627; Sub 1627 1292 1640;
  Mul 1666 310 1666; Mul 1433 692 1398; Add 1335 1666 1433; Mul 1234 327 1496; Mul 1180 798 1434;
  Add 1234 1234 1180; Mul 1180 318 1675; Mul 1570 640 1670; Add 1180 1180 1570; Add 1234 1234 1180;
  Add 1335 1335 1234; Sub 1386 1386 1335; Mul 1335 540 1386; Mul 1234 811 1048; Sub 1335 1335 1234;
  Mul 1234 813 1157; Mul 1180 310 1634; Mul 1570 464 1398; Add 1180 1180 1570; Mul 1548 327 1548;
  Mul 1570 703 1434; Add 1477 1548 1570; Mul 1442 318 1272; Mul 1690 662 1670; Add 1442 1442 1690;
  Add 1477 1477 1442; Add 1180 1180 1477; Sub 1577 1577 1180; Mul 1180 544 1577; Add 1234 1234 1180;
  Add 1335 1335 1234; Sub 1335 1627 1335; Mul 1335 4 1335; Mul 1234 812 1071; Add 1335 1335 1234;
  Add 1115 1115 1335; Mul 1335 728 1458; Mul 1234 609 1081; Add 1335 1335 1234; Mul 1234 733 1421;
  Mul 1180 604 1119; Add 1234 1234 1180; Add 1335 1335 1234; Mul 1234 734 1105; Mul 1180 426 1546;
  Add 1234 1234 1180; Add 1335 1335 1234; Mul 1234 739 1255; Mul 1180 438 1470; Add 1234 1234 1180;
  Mul 1180 816 1367; Mul 1127 358 1127; Mul 1477 462 1025; Add 1127 1127 1477; Mul 1573 372 1573;
  Mul 1477 458 1183; Add 1573 1573 1477; Sub 1127 1127 1573; Mul 1241 741 1241; Mul 1573 417 1685;
  Add 1241 1241 1573; Mul 1261 736 1261; Mul 1573 441 1301; Add 1261 1261 1573; Sub 1241 1241 1261;
  Add 1127 1127 1241; Mul 1241 733 1367; Mul 1261 445 1119; Add 1241 1241 1261; Mul 1261 728 1474;
  Mul 1573 434 1081; Add 1261 1261 1573; Sub 1241 1241 1261; Sub 1127 1127 1241; Mul 1127 430 1127;
  Mul 1241 445 1127; Add 1180 1180 1241; Sub 1234 1234 1180; Add 1335 1335 1234; Mul 1234 736 1551;
  Mul 1180 803 1301; Add 1234 1234 1180; Mul 1180 741 1354; Mul 1241 710 1685; Add 1261 1180 1241;
  Mul 1573 738 1263; Mul 1477 356 1368; Add 1573 1573 1477; Add 1261 1261 1573; Add 1234 1234 1261;
  Mul 1261 358 1527; Mul 1573 352 1025; Add 1261 1261 1573; Mul 1512 372 1512; Mul 1573 440 1183;
  Add 1477 1512 1573; Mul 1442 369 1550; Mul 1690 36 1597; Add 1442 1442 1690; Add 1477 1477 1442;
  Add 1261 1261 1477; Sub 1234 1234 1261; Add 1335 1335 1234; Mul 1234 216 1335; Mul 1261 814 1325;
  Sub 1234 1234 1261; Mul 1261 817 1236; Mul 1081 13 1081; Mul 1477 728 1316].
Definition casadi_f0_702 : list instruction := [
  Sub 1081 1081 1477; Mul 1477 733 1458; Mul 1119 609 1119; Add 1477 1477 1119; Add 1081 1081 1477;
  Mul 1477 734 1142; Mul 1546 443 1546; Add 1477 1477 1546; Add 1081 1081 1477; Mul 1477 816 1474;
  Mul 1546 434 1127; Add 1477 1477 1546; Mul 1546 735 1255; Mul 1119 438 1101; Add 1546 1546 1119;
  Sub 1477 1477 1546; Add 1081 1081 1477; Mul 1477 736 1346; Mul 1546 699 1301; Add 1119 1477 1546;
  Mul 1442 741 1618; Mul 1690 394 1685; Add 1442 1442 1690; Mul 1690 738 1520; Mul 1382 245 1368;
  Add 1690 1690 1382; Add 1442 1442 1690; Add 1119 1119 1442; Mul 1564 358 1564; Mul 1442 466 1025;
  Add 1690 1564 1442; Mul 1382 372 1227; Mul 1088 359 1183; Add 1382 1382 1088; Mul 1088 369 1191;
  Mul 1238 593 1597; Add 1088 1088 1238; Add 1382 1382 1088; Add 1690 1690 1382; Sub 1119 1119 1690;
  Add 1081 1081 1119; Mul 1119 215 1081; Add 1261 1261 1119; Sub 1119 1234 1261; Mul 1346 358 1346;
  Mul 1690 699 1025; Add 1382 1346 1690; Mul 1088 372 1557; Mul 1238 801 1183; Add 1088 1088 1238;
  Mul 1238 369 1538; Mul 1439 645 1597; Add 1238 1238 1439; Add 1088 1088 1238; Add 1382 1382 1088;
  Sub 1470 1470 1382; Mul 1382 540 1470; Mul 1088 820 1048; Sub 1382 1382 1088; Mul 1088 822 1157;
  Mul 1238 358 1289; Mul 1439 457 1025; Add 1238 1238 1439; Mul 1354 372 1354; Mul 1439 710 1183;
  Add 1129 1354 1439; Mul 1024 369 1151; Mul 1171 666 1597; Add 1024 1024 1171; Add 1129 1129 1024;
  Add 1238 1238 1129; Sub 1101 1101 1238; Mul 1238 544 1101; Add 1088 1088 1238; Add 1382 1382 1088;
  Sub 1382 1119 1382; Mul 1382 5 1382; Mul 1088 821 1600; Add 1382 1382 1088; Add 1115 1115 1382;
  Mul 1498 85 1498; Mul 1631 79 1631; Sub 1498 1498 1631; Mul 1117 54 1117; Mul 1268 61 1268;
  Sub 1117 1117 1268; Mul 1703 19 1703; Mul 1268 763 1508; Sub 1703 1703 1268; Mul 1268 751 1280;
  Mul 1418 35 1418; Add 1268 1268 1418; Sub 1703 1703 1268; Mul 1706 55 1706; Mul 1587 62 1587;
  Sub 1706 1706 1587; Add 1703 1703 1706; Add 1117 1117 1703; Mul 1018 86 1018; Mul 1083 91 1083;
  Sub 1018 1018 1083; Add 1018 1117 1018; Add 1498 1498 1018; Mul 1651 102 1651; Sub 1651 1498 1651;
  Mul 1591 101 1591; Add 1651 1651 1591; Add 1115 1115 1651; Mul 1651 777 1115; Sub 1020 1020 1651;
  Add 1303 1303 1020; Div 1020 1678 92; Mul 1651 1023 1290; Sub 1020 1020 1651; Mul 1651 767 1020;
  Mul 1533 674 1533; Mul 1591 630 1363; Sub 1533 1533 1591; Mul 1591 654 1022; Mul 1583 680 1583;
  Add 1591 1591 1583; Add 1112 1112 1648; Sub 1591 1591 1112; Add 1533 1533 1591; Mul 1591 615 1236;
  Mul 1452 215 1452; Add 1591 1591 1452; Mul 1654 216 1654; Mul 1452 7 1325; Sub 1654 1654 1452;
  Sub 1591 1591 1654; Add 1533 1533 1591; Mul 1533 0 1533; Mul 1591 771 1435; Add 1533 1533 1591;
  Mul 1591 748 1658; Mul 1654 216 1524; Mul 1452 523 1325; Sub 1654 1654 1452; Add 1654 1363 1654;
  Mul 1654 672 1654; Mul 1452 545 1654; Sub 1591 1591 1452; Mul 1452 216 1300; Mul 1112 502 1325;
  Sub 1452 1452 1112; Mul 1112 215 1278; Mul 1648 505 1236; Add 1112 1112 1648].
Definition casadi_f0_703 : list instruction := [
  Add 1452 1452 1112; Sub 1452 1452 1621; Mul 1452 672 1452; Mul 1112 504 1452; Mul 1648 750 1488;
  Add 1112 1112 1648; Mul 1648 215 1524; Mul 1583 523 1236; Add 1648 1648 1583; Sub 1648 1022 1648;
  Mul 1648 672 1648; Mul 1583 541 1648; Mul 1018 627 1462; Add 1583 1583 1018; Sub 1112 1112 1583;
  Add 1591 1591 1112; Mul 1542 215 1542; Mul 1112 517 1236; Add 1542 1542 1112; Mul 1460 216 1460;
  Mul 1112 532 1325; Sub 1460 1460 1112; Sub 1542 1542 1460; Mul 1460 627 1300; Mul 1112 502 1648;
  Add 1460 1460 1112; Mul 1112 748 1278; Mul 1583 505 1654; Sub 1112 1112 1583; Sub 1460 1460 1112;
  Add 1542 1542 1460; Mul 1542 508 1542; Mul 1460 744 1476; Add 1542 1542 1460; Mul 1460 215 1223;
  Mul 1112 783 1236; Add 1460 1460 1112; Mul 1697 216 1697; Mul 1112 488 1325; Sub 1697 1697 1112;
  Sub 1460 1460 1697; Mul 1697 748 1524; Mul 1654 523 1654; Sub 1697 1697 1654; Mul 1300 750 1300;
  Mul 1654 502 1452; Add 1300 1300 1654; Sub 1697 1697 1300; Add 1460 1460 1697; Mul 1460 536 1460;
  Mul 1697 824 1456; Add 1460 1460 1697; Sub 1542 1542 1460; Mul 1355 215 1355; Mul 1460 491 1236;
  Add 1355 1355 1460; Mul 1223 216 1223; Mul 1460 783 1325; Sub 1223 1223 1460; Sub 1355 1355 1223;
  Mul 1278 750 1278; Mul 1452 505 1452; Add 1278 1278 1452; Mul 1524 627 1524; Mul 1648 523 1648;
  Add 1524 1524 1648; Sub 1278 1278 1524; Add 1355 1355 1278; Mul 1355 526 1355; Mul 1278 825 1132;
  Add 1355 1355 1278; Sub 1542 1542 1355; Add 1591 1591 1542; Mul 1436 674 1436; Mul 1542 792 1363;
  Sub 1436 1436 1542; Add 1145 1145 1137; Mul 1137 298 1621; Sub 1370 1370 1347; Sub 1079 1079 1174;
  Sub 1563 1563 1017; Sub 1411 1411 1413; Add 1563 1563 1411; Add 1079 1079 1563; Add 1370 1370 1079;
  Mul 1413 676 1370; Add 1137 1137 1413; Sub 1145 1145 1137; Add 1436 1436 1145; Mul 1145 468 1236;
  Mul 1515 215 1515; Add 1145 1145 1515; Sub 1145 1145 1109; Add 1436 1436 1145; Mul 1436 216 1436;
  Mul 1145 823 1325; Sub 1436 1436 1145; Mul 1145 686 1022; Mul 1549 680 1549; Add 1145 1145 1549;
  Mul 1549 232 1621; Add 1576 1576 1698; Add 1275 1275 1075; Add 1230 1230 1277; Add 1319 1319 1526;
  Add 1230 1230 1319; Add 1275 1275 1230; Add 1576 1576 1275; Mul 1526 676 1576; Add 1549 1549 1526;
  Sub 1145 1145 1549; Add 1154 1154 1145; Add 1620 1620 1239; Mul 1556 216 1556; Mul 1239 461 1325;
  Sub 1556 1556 1239; Sub 1620 1620 1556; Add 1154 1154 1620; Mul 1154 215 1154; Mul 1620 668 1236;
  Add 1154 1154 1620; Sub 1436 1436 1154; Add 1343 1343 1655; Mul 1480 216 1480; Mul 1655 794 1325;
  Sub 1480 1480 1655; Sub 1343 1343 1480; Mul 1343 540 1343; Mul 1480 664 1048; Sub 1343 1343 1480;
  Mul 1480 808 1236; Mul 1503 215 1503; Add 1480 1480 1503; Sub 1480 1480 1585; Mul 1480 544 1480;
  Mul 1585 642 1157; Add 1480 1480 1585; Add 1343 1343 1480; Sub 1436 1436 1343; Add 1591 1591 1436;
  Mul 1591 1 1591; Mul 1436 760 1463; Add 1591 1591 1436; Add 1533 1533 1591; Mul 1422 674 1422;
  Mul 1591 233 1363; Sub 1422 1422 1591; Mul 1591 789 1022; Mul 1258 680 1258].
Definition casadi_f0_704 : list instruction := [
  Add 1591 1591 1258; Mul 1258 637 1621; Mul 1576 215 1576; Mul 1436 232 1236; Add 1576 1576 1436;
  Mul 1370 216 1370; Mul 1436 298 1325; Sub 1370 1370 1436; Sub 1576 1576 1370; Add 1426 1426 1576;
  Mul 1426 676 1426; Add 1258 1258 1426; Sub 1591 1591 1258; Add 1422 1422 1591; Sub 1369 1369 1441;
  Add 1422 1422 1369; Mul 1422 2 1422; Mul 1369 826 1497; Add 1422 1422 1369; Add 1533 1533 1422;
  Mul 1422 674 1099; Mul 1369 697 1363; Sub 1422 1422 1369; Mul 1369 695 1022; Mul 1441 680 1558;
  Add 1369 1369 1441; Mul 1441 647 1621; Mul 1591 216 1079; Mul 1258 411 1325; Sub 1591 1591 1258;
  Mul 1258 215 1275; Mul 1426 302 1236; Add 1258 1258 1426; Sub 1591 1591 1258; Add 1233 1233 1591;
  Mul 1591 676 1233; Add 1441 1441 1591; Sub 1369 1369 1441; Add 1422 1422 1369; Sub 1554 1554 1111;
  Add 1422 1422 1554; Mul 1422 3 1422; Mul 1554 347 1131; Add 1422 1422 1554; Add 1533 1533 1422;
  Mul 1422 674 1386; Mul 1554 811 1363; Sub 1422 1422 1554; Mul 1554 813 1022; Mul 1111 680 1577;
  Add 1554 1554 1111; Mul 1111 802 1621; Mul 1369 310 1230; Mul 1441 252 1398; Add 1369 1369 1441;
  Mul 1441 327 1563; Mul 1591 339 1434; Add 1441 1441 1591; Mul 1133 318 1133; Mul 1591 701 1670;
  Add 1258 1133 1591; Add 1441 1441 1258; Add 1369 1369 1441; Sub 1438 1438 1369; Mul 1369 676 1438;
  Add 1111 1111 1369; Sub 1554 1554 1111; Add 1422 1422 1554; Sub 1640 1640 1292; Add 1422 1422 1640;
  Mul 1422 4 1422; Mul 1640 698 1071; Add 1422 1422 1640; Add 1533 1533 1422; Mul 1422 674 1470;
  Mul 1640 820 1363; Sub 1422 1422 1640; Mul 1640 822 1022; Mul 1292 680 1101; Add 1640 1640 1292;
  Mul 1292 788 1621; Mul 1554 358 1319; Mul 1111 234 1025; Add 1554 1554 1111; Mul 1111 372 1411;
  Mul 1369 355 1183; Add 1111 1111 1369; Mul 1419 369 1419; Mul 1369 708 1597; Add 1441 1419 1369;
  Add 1111 1111 1441; Add 1554 1554 1111; Sub 1127 1127 1554; Mul 1554 676 1127; Add 1292 1292 1554;
  Sub 1640 1640 1292; Add 1422 1422 1640; Sub 1261 1261 1234; Add 1422 1422 1261; Mul 1422 5 1422;
  Mul 1261 809 1600; Add 1422 1422 1261; Add 1533 1533 1422; Sub 1498 1498 1533; Mul 1533 778 1498;
  Add 1651 1651 1533; Sub 1303 1303 1651; Div 1651 1222 92; Mul 1533 1516 1290; Sub 1651 1651 1533;
  Mul 1533 775 1651; Add 1062 1062 1190; Mul 1190 658 1257; Mul 1567 718 1567; Add 1190 1190 1567;
  Sub 1062 1062 1190; Mul 1190 635 1700; Mul 1149 714 1149; Add 1190 1190 1149; Sub 1062 1062 1190;
  Mul 1120 216 1120; Mul 1190 90 1325; Sub 1120 1120 1190; Mul 1190 566 1236; Mul 1665 215 1665;
  Add 1190 1190 1665; Sub 1120 1120 1190; Add 1062 1062 1120; Mul 1062 0 1062; Mul 1120 818 1435;
  Add 1062 1062 1120; Mul 1120 216 1599; Mul 1190 519 1325; Sub 1120 1120 1190; Sub 1120 1120 1700;
  Mul 1120 156 1120; Mul 1190 545 1120; Mul 1665 684 1658; Add 1190 1190 1665; Mul 1665 216 1536;
  Mul 1149 494 1325; Sub 1665 1665 1149; Mul 1149 215 1506; Mul 1567 497 1236; Add 1149 1149 1567;
  Add 1665 1665 1149; Sub 1665 1327 1665; Mul 1665 156 1665; Mul 1149 504 1665].
Definition casadi_f0_705 : list instruction := [
  Mul 1567 660 1488; Add 1149 1149 1567; Mul 1567 215 1599; Mul 1422 519 1236; Add 1567 1567 1422;
  Sub 1567 1567 1257; Mul 1567 156 1567; Mul 1422 541 1567; Mul 1261 827 1462; Add 1422 1422 1261;
  Sub 1149 1149 1422; Add 1190 1190 1149; Mul 1642 216 1642; Mul 1149 530 1325; Sub 1642 1642 1149;
  Mul 1552 215 1552; Mul 1149 513 1236; Add 1552 1552 1149; Sub 1642 1642 1552; Mul 1552 827 1536;
  Mul 1149 494 1567; Add 1552 1552 1149; Mul 1149 684 1506; Mul 1422 497 1120; Add 1149 1149 1422;
  Sub 1552 1552 1149; Add 1642 1642 1552; Mul 1552 508 1642; Mul 1149 656 1476; Add 1552 1552 1149;
  Mul 1097 216 1097; Mul 1149 481 1325; Sub 1097 1097 1149; Mul 1149 215 1389; Mul 1422 782 1236;
  Add 1149 1149 1422; Sub 1097 1097 1149; Mul 1149 684 1599; Mul 1422 519 1120; Add 1149 1149 1422;
  Mul 1536 660 1536; Mul 1422 494 1665; Add 1536 1536 1422; Sub 1149 1149 1536; Add 1097 1097 1149;
  Mul 1149 536 1097; Mul 1536 829 1456; Add 1149 1149 1536; Sub 1552 1552 1149; Mul 1389 216 1389;
  Mul 1149 782 1325; Sub 1389 1389 1149; Mul 1124 215 1124; Mul 1149 483 1236; Add 1124 1124 1149;
  Sub 1389 1389 1124; Mul 1506 660 1506; Mul 1124 497 1665; Add 1506 1506 1124; Mul 1599 827 1599;
  Mul 1124 519 1567; Add 1599 1599 1124; Sub 1506 1506 1599; Add 1389 1389 1506; Mul 1506 526 1389;
  Mul 1599 830 1132; Add 1506 1506 1599; Sub 1552 1552 1506; Add 1190 1190 1552; Mul 1552 411 1327;
  Mul 1079 716 1079; Add 1552 1552 1079; Add 1432 1432 1692; Sub 1552 1552 1432; Mul 1432 795 1700;
  Mul 1164 714 1164; Add 1432 1432 1164; Sub 1552 1552 1432; Mul 1432 416 1236; Mul 1589 215 1589;
  Add 1432 1432 1589; Sub 1679 1679 1432; Add 1552 1552 1679; Mul 1552 216 1552; Mul 1679 828 1325;
  Sub 1552 1552 1679; Mul 1679 302 1327; Mul 1275 716 1275; Add 1679 1679 1275; Mul 1275 448 1257;
  Mul 1388 718 1388; Add 1275 1275 1388; Sub 1679 1679 1275; Add 1282 1282 1402; Sub 1679 1679 1282;
  Mul 1396 216 1396; Mul 1282 414 1325; Sub 1396 1396 1282; Add 1225 1225 1566; Sub 1396 1396 1225;
  Add 1679 1679 1396; Mul 1679 215 1679; Mul 1396 832 1236; Add 1679 1679 1396; Sub 1396 1552 1679;
  Mul 1451 216 1451; Mul 1225 797 1325; Sub 1451 1451 1225; Add 1242 1242 1186; Sub 1451 1451 1242;
  Mul 1242 540 1451; Mul 1186 835 1048; Sub 1242 1242 1186; Mul 1186 415 1236; Mul 1110 215 1110;
  Add 1186 1186 1110; Sub 1660 1660 1186; Mul 1186 544 1660; Mul 1110 837 1157; Add 1186 1186 1110;
  Add 1242 1242 1186; Sub 1396 1396 1242; Add 1190 1190 1396; Mul 1190 1 1190; Mul 1396 632 1463;
  Add 1190 1190 1396; Add 1062 1062 1190; Mul 1120 678 1120; Mul 1190 684 1333; Add 1120 1120 1190;
  Mul 1567 673 1567; Mul 1190 827 1603; Add 1567 1567 1190; Mul 1665 799 1665; Mul 1190 660 1207;
  Add 1665 1665 1190; Add 1567 1567 1665; Add 1120 1120 1567; Mul 1389 602 1389; Mul 1567 830 1541;
  Add 1389 1389 1567; Mul 1097 670 1097; Mul 1567 829 1606; Add 1097 1097 1567; Mul 1642 671 1642;
  Mul 1567 656 1575; Add 1642 1642 1567; Sub 1097 1097 1642; Add 1389 1389 1097].
Definition casadi_f0_706 : list instruction := [
  Add 1120 1120 1389; Mul 1451 674 1451; Mul 1389 835 1363; Sub 1451 1451 1389; Mul 1660 680 1660;
  Mul 1389 837 1022; Add 1660 1660 1389; Mul 1391 216 1391; Mul 1389 403 1325; Sub 1391 1391 1389;
  Mul 1389 293 1236; Mul 1510 215 1510; Add 1389 1389 1510; Sub 1391 1391 1389; Mul 1391 676 1391;
  Mul 1389 839 1621; Add 1391 1391 1389; Sub 1660 1660 1391; Add 1451 1451 1660; Sub 1679 1679 1552;
  Add 1451 1451 1679; Add 1120 1120 1451; Mul 1120 2 1120; Mul 1451 834 1497; Add 1120 1120 1451;
  Add 1062 1062 1120; Mul 1120 647 1327; Mul 1233 716 1233; Add 1120 1120 1233; Mul 1233 695 1257;
  Mul 1558 718 1558; Add 1233 1233 1558; Sub 1120 1120 1233; Mul 1233 697 1700; Mul 1099 714 1099;
  Add 1233 1233 1099; Sub 1120 1120 1233; Add 1120 1120 1525; Mul 1120 3 1120; Mul 1525 836 1131;
  Add 1120 1120 1525; Add 1062 1062 1120; Mul 1120 802 1327; Mul 1525 716 1438; Add 1120 1120 1525;
  Mul 1525 813 1257; Mul 1233 718 1577; Add 1525 1525 1233; Sub 1120 1120 1525; Mul 1525 811 1700;
  Mul 1233 714 1386; Add 1525 1525 1233; Sub 1120 1120 1525; Add 1120 1120 1627; Mul 1120 4 1120;
  Mul 1627 702 1071; Add 1120 1120 1627; Add 1062 1062 1120; Mul 1120 788 1327; Mul 1627 716 1127;
  Add 1120 1120 1627; Mul 1627 822 1257; Mul 1525 718 1101; Add 1627 1627 1525; Sub 1120 1120 1627;
  Mul 1627 820 1700; Mul 1525 714 1470; Add 1627 1627 1525; Sub 1120 1120 1627; Add 1120 1120 1119;
  Mul 1120 5 1120; Mul 1119 810 1600; Add 1120 1120 1119; Add 1062 1062 1120; Add 1062 1062 1117;
  Mul 1117 769 1062; Sub 1533 1533 1117; Add 1303 1303 1533; Div 1533 1314 92; Mul 1117 1637 1290;
  Sub 1533 1533 1117; Mul 1117 815 1533; Mul 1120 640 1407; Mul 1675 725 1675; Add 1120 1120 1675;
  Mul 1675 662 1501; Mul 1272 731 1272; Add 1675 1675 1272; Add 1337 1337 1364; Add 1675 1675 1337;
  Add 1120 1120 1675; Mul 1675 580 1398; Mul 1034 310 1034; Add 1675 1675 1034; Mul 1034 59 1434;
  Mul 1601 327 1601; Add 1034 1034 1601; Add 1169 1169 1646; Add 1034 1034 1169; Add 1675 1675 1034;
  Sub 1120 1120 1675; Mul 1120 0 1120; Mul 1675 819 1435; Add 1120 1120 1675; Mul 1675 327 1016;
  Mul 1034 515 1434; Add 1675 1675 1034; Mul 1034 318 1126; Mul 1169 489 1670; Add 1034 1034 1169;
  Sub 1675 1675 1034; Sub 1675 1407 1675; Mul 1675 723 1675; Mul 1034 545 1675; Mul 1169 831 1658;
  Add 1034 1034 1169; Mul 1169 310 1126; Mul 1646 489 1398; Add 1169 1169 1646; Mul 1646 327 1224;
  Mul 1601 486 1434; Add 1646 1646 1601; Sub 1169 1169 1646; Sub 1169 1423 1169; Mul 1169 723 1169;
  Mul 1646 504 1169; Mul 1601 840 1488; Add 1646 1646 1601; Mul 1601 318 1224; Mul 1337 486 1670;
  Add 1601 1601 1337; Mul 1337 310 1016; Mul 1364 515 1398; Add 1337 1337 1364; Sub 1601 1601 1337;
  Sub 1601 1501 1601; Mul 1601 723 1601; Mul 1337 541 1601; Mul 1364 842 1462; Add 1337 1337 1364;
  Sub 1646 1646 1337; Add 1034 1034 1646; Mul 1646 842 1224; Mul 1337 486 1601; Add 1646 1646 1337;
  Mul 1337 831 1126; Mul 1364 489 1675; Add 1337 1337 1364; Sub 1646 1646 1337].
Definition casadi_f0_707 : list instruction := [
  Mul 1337 310 1053; Mul 1364 510 1398; Add 1337 1337 1364; Mul 1364 327 1267; Mul 1272 528 1434;
  Add 1364 1364 1272; Add 1337 1337 1364; Mul 1500 318 1500; Mul 1364 479 1670; Add 1500 1500 1364;
  Add 1337 1337 1500; Sub 1646 1646 1337; Mul 1337 508 1646; Mul 1500 841 1476; Add 1337 1337 1500;
  Mul 1500 831 1016; Mul 1364 515 1675; Add 1500 1500 1364; Mul 1224 840 1224; Mul 1364 486 1169;
  Add 1224 1224 1364; Sub 1500 1500 1224; Mul 1224 310 1172; Mul 1364 606 1398; Add 1224 1224 1364;
  Mul 1493 327 1493; Mul 1364 786 1434; Add 1493 1493 1364; Add 1224 1224 1493; Mul 1267 318 1267;
  Mul 1493 528 1670; Add 1267 1267 1493; Add 1224 1224 1267; Sub 1500 1500 1224; Mul 1224 536 1500;
  Mul 1267 844 1456; Add 1224 1224 1267; Sub 1337 1337 1224; Mul 1126 840 1126; Mul 1224 489 1169;
  Add 1126 1126 1224; Mul 1016 842 1016; Mul 1224 515 1601; Add 1016 1016 1224; Sub 1126 1126 1016;
  Mul 1489 310 1489; Mul 1016 705 1398; Add 1489 1489 1016; Mul 1172 327 1172; Mul 1016 606 1434;
  Add 1172 1172 1016; Add 1489 1489 1172; Mul 1053 318 1053; Mul 1172 510 1670; Add 1053 1053 1172;
  Add 1489 1489 1053; Sub 1126 1126 1489; Mul 1489 526 1126; Mul 1053 845 1132; Add 1489 1489 1053;
  Sub 1337 1337 1489; Add 1034 1034 1337; Add 1433 1433 1666; Mul 1666 800 1434; Mul 1617 327 1617;
  Add 1666 1666 1617; Mul 1617 643 1670; Mul 1107 318 1107; Add 1617 1617 1107; Add 1666 1666 1617;
  Add 1433 1433 1666; Mul 1666 540 1433; Mul 1617 843 1048; Sub 1666 1666 1617; Mul 1617 465 1398;
  Mul 1351 310 1351; Add 1617 1617 1351; Add 1570 1570 1548; Mul 1548 665 1670; Mul 1166 318 1166;
  Add 1548 1548 1166; Add 1570 1570 1548; Add 1617 1617 1570; Mul 1570 544 1617; Mul 1548 847 1157;
  Add 1570 1570 1548; Add 1666 1666 1570; Mul 1570 798 1407; Mul 1496 725 1496; Add 1570 1570 1496;
  Add 1613 1613 1358; Mul 1358 339 1423; Mul 1563 727 1563; Add 1358 1358 1563; Add 1613 1613 1358;
  Add 1570 1570 1613; Mul 1613 407 1398; Mul 1595 310 1595; Add 1613 1613 1595; Add 1459 1459 1179;
  Mul 1179 595 1670; Mul 1108 318 1108; Add 1179 1179 1108; Add 1459 1459 1179; Add 1613 1613 1459;
  Sub 1570 1570 1613; Mul 1570 216 1570; Mul 1613 848 1325; Sub 1570 1570 1613; Add 1051 1051 1461;
  Mul 1461 464 1501; Mul 1634 731 1634; Add 1461 1461 1634; Mul 1634 252 1423; Mul 1230 727 1230;
  Add 1634 1634 1230; Add 1461 1461 1634; Add 1051 1051 1461; Add 1348 1348 1393; Mul 1393 361 1434;
  Mul 1279 327 1279; Add 1393 1393 1279; Mul 1279 620 1670; Mul 1204 318 1204; Add 1279 1279 1204;
  Add 1393 1393 1279; Add 1348 1348 1393; Sub 1051 1051 1348; Mul 1051 215 1051; Mul 1348 850 1236;
  Add 1051 1051 1348; Sub 1348 1570 1051; Add 1666 1666 1348; Add 1034 1034 1666; Mul 1034 1 1034;
  Mul 1666 838 1463; Add 1034 1034 1666; Add 1120 1120 1034; Mul 1034 678 1675; Mul 1666 831 1333;
  Add 1034 1034 1666; Mul 1666 673 1601; Mul 1393 842 1603; Add 1666 1666 1393; Mul 1393 799 1169;
  Mul 1279 840 1207; Add 1393 1393 1279; Add 1666 1666 1393; Add 1034 1034 1666].
Definition casadi_f0_708 : list instruction := [
  Mul 1666 602 1126; Mul 1393 845 1541; Add 1666 1666 1393; Mul 1393 670 1500; Mul 1279 844 1606;
  Add 1393 1393 1279; Mul 1279 671 1646; Mul 1204 841 1575; Add 1279 1279 1204; Sub 1393 1393 1279;
  Add 1666 1666 1393; Add 1034 1034 1666; Mul 1666 785 1398; Mul 1037 310 1037; Add 1666 1666 1037;
  Mul 1037 306 1434; Mul 1167 327 1167; Add 1037 1037 1167; Add 1591 1591 1133; Add 1037 1037 1591;
  Add 1666 1666 1037; Mul 1037 676 1666; Mul 1591 853 1621; Add 1037 1037 1591; Mul 1591 680 1617;
  Mul 1133 847 1022; Add 1591 1591 1133; Sub 1037 1037 1591; Mul 1591 674 1433; Mul 1133 843 1363;
  Sub 1591 1591 1133; Sub 1037 1037 1591; Sub 1051 1051 1570; Add 1037 1037 1051; Add 1034 1034 1037;
  Mul 1034 2 1034; Mul 1037 846 1497; Add 1034 1034 1037; Add 1120 1120 1034; Mul 1675 717 1675;
  Mul 1034 831 1248; Add 1675 1675 1034; Mul 1169 787 1169; Mul 1034 840 1121; Add 1169 1169 1034;
  Mul 1601 713 1601; Mul 1034 842 1198; Add 1601 1601 1034; Sub 1169 1169 1601; Add 1675 1675 1169;
  Mul 1646 677 1646; Mul 1169 841 1098; Add 1646 1646 1169; Mul 1500 712 1500; Mul 1169 844 1392;
  Add 1500 1500 1169; Sub 1646 1646 1500; Mul 1126 706 1126; Mul 1500 845 1106; Add 1126 1126 1500;
  Sub 1646 1646 1126; Add 1675 1675 1646; Mul 1433 714 1433; Mul 1646 843 1700; Add 1433 1433 1646;
  Mul 1617 718 1617; Mul 1646 847 1257; Add 1617 1617 1646; Mul 1666 716 1666; Mul 1646 853 1327;
  Add 1666 1666 1646; Sub 1617 1617 1666; Add 1433 1433 1617; Add 1433 1433 1348; Add 1675 1675 1433;
  Mul 1675 3 1675; Mul 1433 854 1131; Add 1675 1675 1433; Add 1120 1120 1675; Mul 1675 811 1407;
  Mul 1386 725 1386; Add 1675 1675 1386; Mul 1386 813 1501; Mul 1577 731 1577; Add 1386 1386 1577;
  Mul 1577 802 1423; Mul 1438 727 1438; Add 1577 1577 1438; Add 1386 1386 1577; Add 1675 1675 1386;
  Mul 1386 807 1398; Mul 1645 310 1645; Add 1386 1386 1645; Mul 1645 690 1434; Mul 1467 327 1467;
  Add 1645 1645 1467; Mul 1467 720 1670; Mul 1572 318 1572; Add 1467 1467 1572; Add 1645 1645 1467;
  Add 1386 1386 1645; Sub 1675 1675 1386; Mul 1675 4 1675; Mul 1386 851 1071; Add 1675 1675 1386;
  Add 1120 1120 1675; Mul 1675 820 1407; Mul 1386 725 1470; Add 1675 1675 1386; Mul 1386 822 1501;
  Mul 1645 731 1101; Add 1386 1386 1645; Mul 1645 788 1423; Mul 1467 727 1127; Add 1645 1645 1467;
  Add 1386 1386 1645; Add 1675 1675 1386; Mul 1386 817 1398; Mul 1645 310 1081; Add 1386 1386 1645;
  Mul 1645 814 1434; Mul 1467 327 1335; Add 1645 1645 1467; Mul 1467 732 1670; Mul 1572 318 1091;
  Add 1467 1467 1572; Add 1645 1645 1467; Add 1386 1386 1645; Sub 1675 1675 1386; Mul 1675 5 1675;
  Mul 1386 852 1600; Add 1675 1675 1386; Add 1120 1120 1675; Sub 1322 1322 1120; Mul 1120 761 1322;
  Add 1117 1117 1120; Add 1303 1303 1117; Div 1117 1298 92; Mul 1120 1619 1290; Sub 1117 1117 1120;
  Mul 1120 833 1117; Mul 1675 645 1301; Mul 1538 736 1538; Add 1675 1675 1538; Mul 1538 666 1685;
  Mul 1151 741 1151; Add 1538 1538 1151; Add 1332 1332 1424; Add 1538 1538 1332].
Definition casadi_f0_709 : list instruction := [
  Add 1675 1675 1538; Mul 1538 593 1025; Mul 1191 358 1191; Add 1538 1538 1191; Mul 1191 36 1183;
  Mul 1550 372 1550; Add 1191 1191 1550; Add 1168 1168 1339; Add 1191 1191 1168; Add 1538 1538 1191;
  Sub 1675 1675 1538; Mul 1538 0 1675; Mul 1435 849 1435; Add 1538 1538 1435; Mul 1435 372 1255;
  Mul 1191 438 1183; Add 1435 1435 1191; Mul 1191 369 1474; Mul 1168 434 1597; Add 1191 1191 1168;
  Sub 1435 1435 1191; Sub 1435 1301 1435; Mul 1435 430 1435; Mul 1191 545 1435; Mul 1658 856 1658;
  Add 1191 1191 1658; Mul 1658 358 1474; Mul 1168 434 1025; Add 1658 1658 1168; Mul 1168 372 1367;
  Mul 1339 445 1183; Add 1168 1168 1339; Sub 1658 1658 1168; Sub 1658 1368 1658; Mul 1658 430 1658;
  Mul 1168 504 1658; Mul 1488 858 1488; Add 1168 1168 1488; Mul 1488 369 1367; Mul 1339 445 1597;
  Add 1488 1488 1339; Mul 1339 358 1255; Mul 1550 438 1025; Add 1339 1339 1550; Sub 1488 1488 1339;
  Sub 1488 1685 1488; Mul 1488 430 1488; Mul 1339 541 1488; Mul 1462 860 1462; Add 1339 1339 1462;
  Sub 1168 1168 1339; Add 1191 1191 1168; Mul 1168 860 1367; Mul 1339 445 1488; Add 1168 1168 1339;
  Mul 1339 856 1474; Mul 1462 434 1435; Add 1339 1339 1462; Sub 1168 1168 1339; Mul 1339 358 1142;
  Mul 1462 443 1025; Add 1339 1339 1462; Mul 1462 372 1105; Mul 1550 426 1183; Add 1462 1462 1550;
  Add 1339 1339 1462; Mul 1523 369 1523; Mul 1462 478 1597; Add 1523 1523 1462; Add 1339 1339 1523;
  Sub 1168 1168 1339; Mul 1339 508 1168; Mul 1476 859 1476; Add 1339 1339 1476; Mul 1476 856 1255;
  Mul 1523 438 1435; Add 1476 1476 1523; Mul 1367 858 1367; Mul 1523 445 1658; Add 1367 1367 1523;
  Sub 1476 1476 1367; Mul 1367 358 1458; Mul 1523 609 1025; Add 1367 1367 1523; Mul 1421 372 1421;
  Mul 1523 604 1183; Add 1421 1421 1523; Add 1367 1367 1421; Mul 1105 369 1105; Mul 1421 426 1597;
  Add 1105 1105 1421; Add 1367 1367 1105; Sub 1476 1476 1367; Mul 1367 536 1476; Mul 1456 862 1456;
  Add 1367 1367 1456; Sub 1339 1339 1367; Mul 1474 858 1474; Mul 1367 434 1658; Add 1474 1474 1367;
  Mul 1255 860 1255; Mul 1367 438 1488; Add 1255 1255 1367; Sub 1474 1474 1255; Mul 1255 13 1025;
  Mul 1316 358 1316; Sub 1255 1255 1316; Mul 1458 372 1458; Mul 1316 609 1183; Add 1458 1458 1316;
  Add 1255 1255 1458; Mul 1142 369 1142; Mul 1458 443 1597; Add 1142 1142 1458; Add 1255 1255 1142;
  Sub 1474 1474 1255; Mul 1255 526 1474; Mul 1132 863 1132; Add 1255 1255 1132; Sub 1339 1339 1255;
  Add 1191 1191 1339; Add 1690 1690 1346; Mul 1346 803 1183; Mul 1551 372 1551; Add 1346 1346 1551;
  Mul 1551 648 1597; Mul 1638 369 1638; Add 1551 1551 1638; Add 1346 1346 1551; Add 1690 1690 1346;
  Mul 1346 540 1690; Mul 1048 861 1048; Sub 1346 1346 1048; Mul 1048 394 1025; Mul 1618 358 1618;
  Add 1048 1048 1618; Add 1439 1439 1354; Mul 1354 669 1597; Mul 1478 369 1478; Add 1354 1354 1478;
  Add 1439 1439 1354; Add 1048 1048 1439; Mul 1439 544 1048; Mul 1157 865 1157; Add 1439 1439 1157;
  Add 1346 1346 1439; Mul 1439 801 1301; Mul 1557 736 1557; Add 1439 1439 1557].
Definition casadi_f0_710 : list instruction := [
  Add 1241 1241 1180; Mul 1180 355 1368; Mul 1411 738 1411; Add 1180 1180 1411; Add 1241 1241 1180;
  Add 1439 1439 1241; Mul 1241 359 1025; Mul 1227 358 1227; Add 1241 1241 1227; Add 1573 1573 1512;
  Mul 1512 608 1597; Mul 1653 369 1653; Add 1512 1512 1653; Add 1573 1573 1512; Add 1241 1241 1573;
  Sub 1439 1439 1241; Mul 1241 216 1439; Mul 1325 866 1325; Sub 1241 1241 1325; Add 1546 1546 1477;
  Mul 1477 457 1685; Mul 1289 741 1289; Add 1477 1477 1289; Mul 1289 234 1368; Mul 1319 738 1319;
  Add 1289 1289 1319; Add 1477 1477 1289; Add 1546 1546 1477; Add 1442 1442 1564; Mul 1564 352 1183;
  Mul 1527 372 1527; Add 1564 1564 1527; Mul 1527 622 1597; Mul 1409 369 1409; Add 1527 1527 1409;
  Add 1564 1564 1527; Add 1442 1442 1564; Sub 1546 1546 1442; Mul 1442 215 1546; Mul 1236 868 1236;
  Add 1442 1442 1236; Sub 1236 1241 1442; Add 1346 1346 1236; Add 1191 1191 1346; Mul 1191 1 1191;
  Mul 1463 857 1463; Add 1191 1191 1463; Add 1538 1538 1191; Mul 1191 678 1435; Mul 1333 856 1333;
  Add 1191 1191 1333; Mul 1333 673 1488; Mul 1603 860 1603; Add 1333 1333 1603; Mul 1603 799 1658;
  Mul 1207 858 1207; Add 1603 1603 1207; Add 1333 1333 1603; Add 1191 1191 1333; Mul 1333 602 1474;
  Mul 1541 863 1541; Add 1333 1333 1541; Mul 1541 670 1476; Mul 1606 862 1606; Add 1541 1541 1606;
  Mul 1606 671 1168; Mul 1575 859 1575; Add 1606 1606 1575; Sub 1541 1541 1606; Add 1333 1333 1541;
  Add 1191 1191 1333; Mul 1333 245 1025; Mul 1520 358 1520; Add 1333 1333 1520; Mul 1520 356 1183;
  Mul 1263 372 1263; Add 1520 1520 1263; Add 1369 1369 1419; Add 1520 1520 1369; Add 1333 1333 1520;
  Mul 1520 676 1333; Mul 1621 871 1621; Add 1520 1520 1621; Mul 1621 680 1048; Mul 1022 865 1022;
  Add 1621 1621 1022; Sub 1520 1520 1621; Mul 1621 674 1690; Mul 1363 861 1363; Sub 1621 1621 1363;
  Sub 1520 1520 1621; Sub 1442 1442 1241; Add 1520 1520 1442; Add 1191 1191 1520; Mul 1191 2 1191;
  Mul 1497 864 1497; Add 1191 1191 1497; Add 1538 1538 1191; Mul 1191 717 1435; Mul 1248 856 1248;
  Add 1191 1191 1248; Mul 1248 787 1658; Mul 1121 858 1121; Add 1248 1248 1121; Mul 1121 713 1488;
  Mul 1198 860 1198; Add 1121 1121 1198; Sub 1248 1248 1121; Add 1191 1191 1248; Mul 1248 677 1168;
  Mul 1098 859 1098; Add 1248 1248 1098; Mul 1098 712 1476; Mul 1392 862 1392; Add 1098 1098 1392;
  Sub 1248 1248 1098; Mul 1098 706 1474; Mul 1106 863 1106; Add 1098 1098 1106; Sub 1248 1248 1098;
  Add 1191 1191 1248; Mul 1248 714 1690; Mul 1700 861 1700; Add 1248 1248 1700; Mul 1700 718 1048;
  Mul 1257 865 1257; Add 1700 1700 1257; Mul 1257 716 1333; Mul 1327 871 1327; Add 1257 1257 1327;
  Sub 1700 1700 1257; Add 1248 1248 1700; Add 1248 1248 1236; Add 1191 1191 1248; Mul 1191 3 1191;
  Mul 1131 872 1131; Add 1191 1191 1131; Add 1538 1538 1191; Mul 1435 729 1435; Mul 1170 856 1170;
  Add 1435 1435 1170; Mul 1488 724 1488; Mul 1254 860 1254; Add 1488 1488 1254; Mul 1658 688 1658;
  Mul 1232 858 1232; Add 1658 1658 1232; Add 1488 1488 1658; Add 1435 1435 1488].
Definition casadi_f0_711 : list instruction := [
  Mul 1474 715 1474; Mul 1090 863 1090; Add 1474 1474 1090; Mul 1476 721 1476; Mul 1192 862 1192;
  Add 1476 1476 1192; Mul 1168 722 1168; Mul 1505 859 1505; Add 1168 1168 1505; Add 1476 1476 1168;
  Add 1474 1474 1476; Add 1435 1435 1474; Mul 1690 725 1690; Mul 1407 861 1407; Add 1690 1690 1407;
  Mul 1048 731 1048; Mul 1501 865 1501; Add 1048 1048 1501; Mul 1333 727 1333; Mul 1423 871 1423;
  Add 1333 1333 1423; Add 1048 1048 1333; Add 1690 1690 1048; Mul 1546 310 1546; Mul 1398 868 1398;
  Add 1546 1546 1398; Mul 1439 327 1439; Mul 1434 866 1434; Add 1439 1439 1434; Mul 1675 318 1675;
  Mul 1670 849 1670; Add 1675 1675 1670; Add 1439 1439 1675; Add 1546 1546 1439; Add 1690 1690 1546;
  Sub 1435 1435 1690; Mul 1435 4 1435; Mul 1071 869 1071; Add 1435 1435 1071; Add 1538 1538 1435;
  Mul 1301 820 1301; Mul 1470 736 1470; Add 1301 1301 1470; Mul 1685 822 1685; Mul 1101 741 1101;
  Add 1685 1685 1101; Mul 1368 788 1368; Mul 1127 738 1127; Add 1368 1368 1127; Add 1685 1685 1368;
  Add 1301 1301 1685; Mul 1025 817 1025; Mul 1081 358 1081; Add 1025 1025 1081; Mul 1183 814 1183;
  Mul 1335 372 1335; Add 1183 1183 1335; Mul 1597 732 1597; Mul 1091 369 1091; Add 1597 1597 1091;
  Add 1183 1183 1597; Add 1025 1025 1183; Sub 1301 1301 1025; Mul 1301 5 1301; Mul 1600 870 1600;
  Add 1301 1301 1600; Add 1538 1538 1301; Sub 1202 1202 1538; Mul 1538 754 1202; Add 1120 1120 1538;
  Add 1303 1303 1120; Mul 1120 210 1298; Mul 1538 200 1361; Add 1120 1120 1538; Mul 1259 19 1259;
  Mul 1538 196 1508; Sub 1259 1259 1538; Mul 1538 189 1280; Mul 1359 35 1359; Sub 1538 1538 1359;
  Sub 1259 1259 1538; Mul 1208 55 1208; Mul 1288 62 1288; Add 1208 1208 1288; Add 1259 1259 1208;
  Mul 1373 86 1373; Mul 1276 91 1276; Add 1373 1373 1276; Add 1373 1259 1373; Mul 1385 102 1385;
  Sub 1385 1373 1385; Mul 1276 777 1385; Mul 1208 209 1674; Add 1276 1276 1208; Add 1120 1120 1276;
  Mul 1276 778 1373; Mul 1208 867 1020; Add 1276 1276 1208; Add 1120 1120 1276; Mul 1276 769 1259;
  Mul 1208 855 1651; Add 1276 1276 1208; Add 1120 1120 1276; Mul 1276 761 1650; Mul 1208 201 1533;
  Add 1276 1276 1208; Sub 1120 1120 1276; Mul 1276 873 1117; Add 1120 1120 1276; Mul 1276 1006 1120;
  Mul 1208 210 1120; Mul 1288 756 1361; Add 1208 1208 1288; Sub 1298 1298 1208; Mul 1208 881 1298;
  Mul 1288 210 1592; Mul 1538 143 1361; Add 1288 1288 1538; Sub 1128 1128 1544; Sub 1026 1026 1201;
  Mul 1026 37 1026; Add 1128 1128 1026; Sub 1408 1408 1321; Mul 1408 80 1408; Add 1408 1128 1408;
  Sub 1531 1531 1356; Mul 1531 100 1531; Add 1531 1408 1531; Mul 1519 1064 1519; Mul 1309 1061 1309;
  Add 1519 1519 1309; Mul 1519 141 1519; Add 1531 1531 1519; Mul 1519 777 1531; Mul 1309 876 1674;
  Add 1519 1519 1309; Add 1288 1288 1519; Mul 1395 151 1395; Mul 1307 103 1307; Add 1395 1395 1307;
  Mul 1635 148 1635; Mul 1250 105 1250; Add 1635 1635 1250; Sub 1395 1395 1635; Sub 1395 1395 1408;
  Mul 1052 102 1052; Sub 1052 1395 1052; Mul 1408 778 1052; Mul 1635 153 1020].
Definition casadi_f0_712 : list instruction := [
  Add 1408 1408 1635; Sub 1288 1288 1408; Mul 1430 1057 1430; Mul 1661 1065 1661; Sub 1430 1430 1661;
  Mul 1430 156 1430; Add 1128 1128 1430; Mul 1605 86 1605; Mul 1514 91 1514; Sub 1605 1605 1514;
  Add 1605 1128 1605; Mul 1387 102 1387; Sub 1387 1605 1387; Mul 1514 769 1387; Mul 1430 171 1651;
  Add 1514 1514 1430; Add 1288 1288 1514; Mul 1280 180 1280; Mul 1669 35 1669; Add 1280 1280 1669;
  Mul 1266 19 1266; Mul 1508 182 1508; Sub 1266 1266 1508; Sub 1280 1280 1266; Mul 1269 55 1269;
  Add 1280 1280 1269; Mul 1464 86 1464; Mul 1092 91 1092; Add 1464 1464 1092; Add 1464 1280 1464;
  Mul 1561 102 1561; Sub 1561 1464 1561; Mul 1092 761 1561; Mul 1269 188 1533; Add 1092 1092 1269;
  Add 1288 1288 1092; Mul 1092 754 1385; Mul 1269 209 1117; Add 1092 1092 1269; Add 1288 1288 1092;
  Mul 1092 210 1288; Mul 1269 875 1361; Add 1092 1092 1269; Sub 1592 1592 1092; Div 1092 1592 65;
  Mul 1592 89 1592; Mul 1269 777 1288; Mul 1266 875 1674; Add 1269 1269 1266; Sub 1531 1531 1269;
  Mul 1269 58 1531; Add 1592 1592 1269; Mul 1269 778 1288; Mul 1266 875 1020; Add 1269 1269 1266;
  Add 1269 1052 1269; Mul 1266 45 1269; Add 1592 1592 1266; Mul 1266 769 1288; Mul 1508 875 1651;
  Add 1266 1266 1508; Sub 1266 1387 1266; Mul 1508 22 1266; Add 1592 1592 1508; Mul 1508 761 1288;
  Mul 1669 875 1533; Add 1508 1508 1669; Sub 1508 1561 1508; Mul 1669 879 1508; Add 1592 1592 1669;
  Mul 1669 754 1288; Mul 1514 875 1117; Add 1669 1669 1514; Sub 1669 1385 1669; Mul 1514 880 1669;
  Add 1592 1592 1514; Div 1592 1592 1045; Mul 1514 1078 1592; Sub 1092 1092 1514; Mul 1514 874 1092;
  Add 1208 1208 1514; Mul 1514 777 1120; Mul 1430 756 1674; Add 1514 1514 1430; Sub 1385 1385 1514;
  Mul 1514 884 1385; Div 1531 1531 65; Mul 1430 1029 1592; Sub 1531 1531 1430; Mul 1430 883 1531;
  Add 1514 1514 1430; Add 1208 1208 1514; Mul 1514 778 1120; Mul 1430 756 1020; Add 1514 1514 1430;
  Sub 1514 1514 1373; Mul 1430 886 1514; Div 1269 1269 65; Mul 1661 1063 1592; Sub 1269 1269 1661;
  Mul 1661 885 1269; Add 1430 1430 1661; Add 1208 1208 1430; Mul 1430 769 1120; Mul 1661 756 1651;
  Add 1430 1430 1661; Sub 1430 1259 1430; Mul 1661 888 1430; Div 1266 1266 65; Mul 1408 1040 1592;
  Sub 1266 1266 1408; Mul 1408 887 1266; Add 1661 1661 1408; Add 1208 1208 1661; Mul 1661 761 1120;
  Mul 1408 756 1533; Add 1661 1661 1408; Add 1661 1650 1661; Mul 1408 890 1661; Div 1508 1508 65;
  Mul 1635 1027 1592; Sub 1508 1508 1635; Mul 1635 889 1508; Add 1408 1408 1635; Sub 1208 1208 1408;
  Div 1669 1669 65; Mul 1408 1046 1592; Sub 1669 1669 1408; Mul 1408 891 1669; Mul 1120 754 1120;
  Mul 1635 756 1117; Add 1120 1120 1635; Mul 1635 892 1120; Sub 1408 1408 1635; Add 1208 1208 1408;
  Mul 1408 881 1208; Mul 1635 882 1092; Add 1408 1408 1635; Sub 1298 1298 1408; Mul 1408 884 1208;
  Mul 1635 882 1531; Add 1408 1408 1635; Sub 1385 1385 1408; Mul 1408 910 1385; Mul 1635 777 1052;
  Mul 1250 153 1674; Add 1635 1635 1250; Mul 1250 210 1678; Mul 1307 154 1361].
Definition casadi_f0_713 : list instruction := [
  Add 1250 1250 1307; Sub 1635 1635 1250; Mul 1250 778 1395; Mul 1307 106 1020; Add 1250 1250 1307;
  Add 1635 1635 1250; Mul 1250 769 1605; Mul 1307 877 1651; Add 1250 1250 1307; Sub 1635 1635 1250;
  Mul 1250 761 1464; Mul 1307 94 1533; Add 1250 1250 1307; Sub 1635 1635 1250; Mul 1250 754 1373;
  Mul 1307 867 1117; Add 1250 1250 1307; Sub 1635 1635 1250; Mul 1250 777 1635; Mul 1307 895 1674;
  Add 1250 1250 1307; Sub 1052 1052 1250; Mul 1250 884 1052; Mul 1307 896 1531; Add 1250 1250 1307;
  Mul 1307 210 1635; Mul 1519 895 1361; Add 1307 1307 1519; Add 1678 1678 1307; Mul 1307 881 1678;
  Mul 1519 898 1092; Add 1307 1307 1519; Sub 1250 1250 1307; Mul 1307 778 1635; Mul 1519 895 1020;
  Add 1307 1307 1519; Sub 1307 1307 1395; Mul 1395 886 1307; Mul 1519 899 1269; Add 1395 1395 1519;
  Add 1250 1250 1395; Mul 1395 769 1635; Mul 1519 895 1651; Add 1395 1395 1519; Add 1395 1605 1395;
  Mul 1519 888 1395; Mul 1309 900 1266; Add 1519 1519 1309; Sub 1250 1250 1519; Mul 1519 761 1635;
  Mul 1309 895 1533; Add 1519 1519 1309; Add 1519 1464 1519; Mul 1309 890 1519; Mul 1356 901 1508;
  Add 1309 1309 1356; Sub 1250 1250 1309; Mul 1309 754 1635; Mul 1356 895 1117; Add 1309 1309 1356;
  Add 1373 1373 1309; Mul 1309 892 1373; Mul 1356 902 1669; Add 1309 1309 1356; Sub 1250 1250 1309;
  Mul 1309 884 1250; Mul 1356 897 1531; Add 1309 1309 1356; Sub 1052 1052 1309; Div 1309 1052 905;
  Mul 1356 881 1250; Mul 1321 897 1092; Add 1356 1356 1321; Add 1678 1678 1356; Mul 1356 904 1678;
  Mul 1052 903 1052; Add 1356 1356 1052; Mul 1052 886 1250; Mul 1321 897 1269; Add 1052 1052 1321;
  Sub 1307 1307 1052; Mul 1052 906 1307; Add 1356 1356 1052; Mul 1052 888 1250; Mul 1321 897 1266;
  Add 1052 1052 1321; Add 1395 1395 1052; Mul 1052 907 1395; Add 1356 1356 1052; Mul 1052 890 1250;
  Mul 1321 897 1508; Add 1052 1052 1321; Add 1519 1519 1052; Mul 1052 908 1519; Add 1356 1356 1052;
  Mul 1052 892 1250; Mul 1321 897 1669; Add 1052 1052 1321; Add 1373 1373 1052; Mul 1052 909 1373;
  Add 1356 1356 1052; Div 1356 1356 1067; Mul 1052 1214 1356; Sub 1309 1309 1052; Mul 1052 894 1309;
  Add 1408 1408 1052; Mul 1052 912 1298; Div 1678 1678 905; Mul 1321 1614 1356; Sub 1678 1678 1321;
  Mul 1321 893 1678; Add 1052 1052 1321; Sub 1408 1408 1052; Mul 1052 886 1208; Mul 1321 882 1269;
  Add 1052 1052 1321; Sub 1514 1514 1052; Mul 1052 914 1514; Div 1307 1307 905; Mul 1321 1273 1356;
  Sub 1307 1307 1321; Mul 1321 913 1307; Add 1052 1052 1321; Add 1408 1408 1052; Mul 1052 888 1208;
  Mul 1321 882 1266; Add 1052 1052 1321; Sub 1430 1430 1052; Mul 1052 916 1430; Div 1395 1395 905;
  Mul 1321 1260 1356; Sub 1395 1395 1321; Mul 1321 915 1395; Add 1052 1052 1321; Sub 1408 1408 1052;
  Mul 1052 890 1208; Mul 1321 882 1508; Add 1052 1052 1321; Add 1661 1661 1052; Mul 1052 918 1661;
  Div 1519 1519 905; Mul 1321 1249 1356; Sub 1519 1519 1321; Mul 1321 917 1519; Add 1052 1052 1321;
  Add 1408 1408 1052; Div 1373 1373 905; Mul 1052 1569 1356; Sub 1373 1373 1052].
Definition casadi_f0_714 : list instruction := [
  Mul 1052 919 1373; Mul 1321 892 1208; Mul 1026 882 1669; Add 1321 1321 1026; Add 1120 1120 1321;
  Mul 1321 920 1120; Sub 1052 1052 1321; Sub 1408 1408 1052; Mul 1052 912 1408; Mul 1321 911 1678;
  Add 1052 1052 1321; Add 1298 1298 1052; Mul 1052 944 1298; Mul 1321 210 1222; Mul 1026 168 1361;
  Add 1321 1321 1026; Mul 1026 777 1387; Mul 1201 171 1674; Add 1026 1026 1201; Add 1321 1321 1026;
  Mul 1026 778 1605; Mul 1201 877 1020; Add 1026 1026 1201; Add 1321 1321 1026; Mul 1026 769 1128;
  Mul 1201 878 1651; Add 1026 1026 1201; Add 1321 1321 1026; Mul 1026 761 1280; Mul 1201 98 1533;
  Add 1026 1026 1201; Add 1321 1321 1026; Mul 1026 754 1259; Mul 1201 855 1117; Add 1026 1026 1201;
  Add 1321 1321 1026; Mul 1026 210 1321; Mul 1201 922 1361; Add 1026 1026 1201; Sub 1222 1222 1026;
  Mul 1026 881 1222; Mul 1201 923 1092; Add 1026 1026 1201; Mul 1201 777 1321; Mul 1544 922 1674;
  Add 1201 1201 1544; Sub 1387 1387 1201; Mul 1201 884 1387; Mul 1544 925 1531; Add 1201 1201 1544;
  Add 1026 1026 1201; Mul 1201 778 1321; Mul 1544 922 1020; Add 1201 1201 1544; Sub 1201 1201 1605;
  Mul 1605 886 1201; Mul 1544 926 1269; Add 1605 1605 1544; Add 1026 1026 1605; Mul 1605 769 1321;
  Mul 1544 922 1651; Add 1605 1605 1544; Sub 1128 1128 1605; Mul 1605 888 1128; Mul 1544 927 1266;
  Add 1605 1605 1544; Add 1026 1026 1605; Mul 1605 761 1321; Mul 1544 922 1533; Add 1605 1605 1544;
  Sub 1605 1280 1605; Mul 1544 890 1605; Mul 1538 928 1508; Add 1544 1544 1538; Add 1026 1026 1544;
  Mul 1544 754 1321; Mul 1538 922 1117; Add 1544 1544 1538; Sub 1259 1259 1544; Mul 1544 892 1259;
  Mul 1538 929 1669; Add 1544 1544 1538; Add 1026 1026 1544; Mul 1544 881 1026; Mul 1538 924 1092;
  Add 1544 1544 1538; Sub 1222 1222 1544; Mul 1544 884 1026; Mul 1538 924 1531; Add 1544 1544 1538;
  Sub 1387 1387 1544; Mul 1544 910 1387; Mul 1538 931 1309; Add 1544 1544 1538; Mul 1538 912 1222;
  Mul 1359 930 1678; Add 1538 1538 1359; Sub 1544 1544 1538; Mul 1538 886 1026; Mul 1359 924 1269;
  Add 1538 1538 1359; Sub 1201 1201 1538; Mul 1538 914 1201; Mul 1359 933 1307; Add 1538 1538 1359;
  Add 1544 1544 1538; Mul 1538 888 1026; Mul 1359 924 1266; Add 1538 1538 1359; Sub 1128 1128 1538;
  Mul 1538 916 1128; Mul 1359 934 1395; Add 1538 1538 1359; Sub 1544 1544 1538; Mul 1538 890 1026;
  Mul 1359 924 1508; Add 1538 1538 1359; Sub 1605 1605 1538; Mul 1538 918 1605; Mul 1359 935 1519;
  Add 1538 1538 1359; Sub 1544 1544 1538; Mul 1538 892 1026; Mul 1359 924 1669; Add 1538 1538 1359;
  Sub 1259 1259 1538; Mul 1538 920 1259; Mul 1359 936 1373; Add 1538 1538 1359; Sub 1544 1544 1538;
  Mul 1538 912 1544; Mul 1359 932 1678; Add 1538 1538 1359; Add 1222 1222 1538; Div 1538 1222 938;
  Mul 1222 937 1222; Mul 1359 910 1544; Mul 1301 932 1309; Add 1359 1359 1301; Sub 1387 1387 1359;
  Mul 1359 939 1387; Add 1222 1222 1359; Mul 1359 914 1544; Mul 1301 932 1307; Add 1359 1359 1301;
  Sub 1201 1201 1359; Mul 1359 940 1201; Add 1222 1222 1359; Mul 1359 916 1544].
Definition casadi_f0_715 : list instruction := [
  Mul 1301 932 1395; Add 1359 1359 1301; Add 1128 1128 1359; Mul 1359 941 1128; Add 1222 1222 1359;
  Mul 1359 918 1544; Mul 1301 932 1519; Add 1359 1359 1301; Add 1605 1605 1359; Mul 1359 942 1605;
  Add 1222 1222 1359; Mul 1359 920 1544; Mul 1301 932 1373; Add 1359 1359 1301; Add 1259 1259 1359;
  Mul 1359 943 1259; Add 1222 1222 1359; Div 1222 1222 1615; Mul 1359 1446 1222; Sub 1538 1538 1359;
  Mul 1359 921 1538; Add 1052 1052 1359; Mul 1359 910 1408; Mul 1301 911 1309; Add 1359 1359 1301;
  Sub 1385 1385 1359; Mul 1359 947 1385; Div 1387 1387 938; Mul 1301 1184 1222; Sub 1387 1387 1301;
  Mul 1301 946 1387; Add 1359 1359 1301; Add 1052 1052 1359; Mul 1359 914 1408; Mul 1301 911 1307;
  Add 1359 1359 1301; Sub 1514 1514 1359; Mul 1359 949 1514; Div 1201 1201 938; Mul 1301 1160 1222;
  Sub 1201 1201 1301; Mul 1301 948 1201; Add 1359 1359 1301; Add 1052 1052 1359; Mul 1359 916 1408;
  Mul 1301 911 1395; Add 1359 1359 1301; Add 1430 1430 1359; Mul 1359 951 1430; Div 1128 1128 938;
  Mul 1301 1328 1222; Sub 1128 1128 1301; Mul 1301 950 1128; Add 1359 1359 1301; Add 1052 1052 1359;
  Mul 1359 918 1408; Mul 1301 911 1519; Add 1359 1359 1301; Sub 1359 1359 1661; Mul 1661 953 1359;
  Div 1605 1605 938; Mul 1301 1155 1222; Sub 1605 1605 1301; Mul 1301 952 1605; Add 1661 1661 1301;
  Add 1052 1052 1661; Mul 1661 920 1408; Mul 1301 911 1373; Add 1661 1661 1301; Sub 1661 1661 1120;
  Mul 1120 955 1661; Div 1259 1259 938; Mul 1301 1220 1222; Sub 1259 1259 1301; Mul 1301 954 1259;
  Add 1120 1120 1301; Add 1052 1052 1120; Mul 1120 944 1052; Mul 1301 945 1538; Add 1120 1120 1301;
  Sub 1298 1298 1120; Mul 1120 986 1298; Mul 1301 210 1314; Mul 1600 175 1361; Add 1301 1301 1600;
  Mul 1600 777 1561; Mul 1025 188 1674; Add 1600 1600 1025; Add 1301 1301 1600; Mul 1600 778 1464;
  Mul 1025 94 1020; Add 1600 1600 1025; Add 1301 1301 1600; Mul 1600 769 1280; Mul 1025 98 1651;
  Add 1600 1600 1025; Add 1301 1301 1600; Mul 1600 761 1028; Mul 1025 172 1533; Add 1600 1600 1025;
  Sub 1301 1301 1600; Mul 1600 754 1650; Mul 1025 201 1117; Add 1600 1600 1025; Sub 1301 1301 1600;
  Mul 1600 210 1301; Mul 1361 957 1361; Add 1600 1600 1361; Sub 1314 1314 1600; Mul 1600 881 1314;
  Mul 1361 958 1092; Add 1600 1600 1361; Mul 1361 777 1301; Mul 1674 957 1674; Add 1361 1361 1674;
  Sub 1561 1561 1361; Mul 1361 884 1561; Mul 1674 960 1531; Add 1361 1361 1674; Add 1600 1600 1361;
  Mul 1361 778 1301; Mul 1020 957 1020; Add 1361 1361 1020; Sub 1361 1361 1464; Mul 1464 886 1361;
  Mul 1020 961 1269; Add 1464 1464 1020; Add 1600 1600 1464; Mul 1464 769 1301; Mul 1651 957 1651;
  Add 1464 1464 1651; Sub 1280 1280 1464; Mul 1464 888 1280; Mul 1651 962 1266; Add 1464 1464 1651;
  Add 1600 1600 1464; Mul 1464 761 1301; Mul 1533 957 1533; Add 1464 1464 1533; Add 1028 1028 1464;
  Mul 1464 890 1028; Mul 1533 963 1508; Add 1464 1464 1533; Sub 1600 1600 1464; Mul 1464 754 1301;
  Mul 1117 957 1117; Add 1464 1464 1117; Add 1650 1650 1464; Mul 1464 892 1650].
Definition casadi_f0_716 : list instruction := [
  Mul 1117 964 1669; Add 1464 1464 1117; Sub 1600 1600 1464; Mul 1464 881 1600; Mul 1117 959 1092;
  Add 1464 1464 1117; Sub 1314 1314 1464; Mul 1464 884 1600; Mul 1117 959 1531; Add 1464 1464 1117;
  Sub 1561 1561 1464; Mul 1464 910 1561; Mul 1117 966 1309; Add 1464 1464 1117; Mul 1117 912 1314;
  Mul 1533 965 1678; Add 1117 1117 1533; Sub 1464 1464 1117; Mul 1117 886 1600; Mul 1533 959 1269;
  Add 1117 1117 1533; Sub 1361 1361 1117; Mul 1117 914 1361; Mul 1533 968 1307; Add 1117 1117 1533;
  Add 1464 1464 1117; Mul 1117 888 1600; Mul 1533 959 1266; Add 1117 1117 1533; Sub 1280 1280 1117;
  Mul 1117 916 1280; Mul 1533 969 1395; Add 1117 1117 1533; Sub 1464 1464 1117; Mul 1117 890 1600;
  Mul 1533 959 1508; Add 1117 1117 1533; Add 1028 1028 1117; Mul 1117 918 1028; Mul 1533 970 1519;
  Add 1117 1117 1533; Add 1464 1464 1117; Mul 1117 892 1600; Mul 1533 959 1669; Add 1117 1117 1533;
  Add 1650 1650 1117; Mul 1117 920 1650; Mul 1533 971 1373; Add 1117 1117 1533; Add 1464 1464 1117;
  Mul 1117 912 1464; Mul 1533 967 1678; Add 1117 1117 1533; Add 1314 1314 1117; Mul 1117 944 1314;
  Mul 1533 972 1538; Add 1117 1117 1533; Mul 1533 910 1464; Mul 1651 967 1309; Add 1533 1533 1651;
  Sub 1561 1561 1533; Mul 1533 947 1561; Mul 1651 974 1387; Add 1533 1533 1651; Add 1117 1117 1533;
  Mul 1533 914 1464; Mul 1651 967 1307; Add 1533 1533 1651; Sub 1361 1361 1533; Mul 1533 949 1361;
  Mul 1651 975 1201; Add 1533 1533 1651; Add 1117 1117 1533; Mul 1533 916 1464; Mul 1651 967 1395;
  Add 1533 1533 1651; Add 1280 1280 1533; Mul 1533 951 1280; Mul 1651 976 1128; Add 1533 1533 1651;
  Add 1117 1117 1533; Mul 1533 918 1464; Mul 1651 967 1519; Add 1533 1533 1651; Sub 1533 1533 1028;
  Mul 1028 953 1533; Mul 1651 977 1605; Add 1028 1028 1651; Add 1117 1117 1028; Mul 1028 920 1464;
  Mul 1651 967 1373; Add 1028 1028 1651; Sub 1028 1028 1650; Mul 1650 955 1028; Mul 1651 978 1259;
  Add 1650 1650 1651; Add 1117 1117 1650; Mul 1650 944 1117; Mul 1651 973 1538; Add 1650 1650 1651;
  Sub 1314 1314 1650; Div 1650 1314 980; Mul 1314 979 1314; Mul 1651 947 1117; Mul 1020 973 1387;
  Add 1651 1651 1020; Sub 1561 1561 1651; Mul 1651 981 1561; Add 1314 1314 1651; Mul 1651 949 1117;
  Mul 1020 973 1201; Add 1651 1651 1020; Sub 1361 1361 1651; Mul 1651 982 1361; Add 1314 1314 1651;
  Mul 1651 951 1117; Mul 1020 973 1128; Add 1651 1651 1020; Sub 1280 1280 1651; Mul 1651 983 1280;
  Add 1314 1314 1651; Mul 1651 953 1117; Mul 1020 973 1605; Add 1651 1651 1020; Sub 1533 1533 1651;
  Mul 1651 984 1533; Add 1314 1314 1651; Mul 1651 955 1117; Mul 1020 973 1259; Add 1651 1651 1020;
  Sub 1028 1028 1651; Mul 1651 985 1028; Add 1314 1314 1651; Div 1314 1314 1630; Mul 1651 1629 1314;
  Sub 1650 1650 1651; Mul 1651 956 1650; Add 1120 1120 1651; Mul 1651 947 1052; Mul 1020 945 1387;
  Add 1651 1651 1020; Sub 1385 1385 1651; Mul 1651 989 1385; Div 1561 1561 980; Mul 1020 1262 1314;
  Sub 1561 1561 1020; Mul 1020 988 1561; Add 1651 1651 1020; Add 1120 1120 1651].
Definition casadi_f0_717 : list instruction := [
  Mul 1651 949 1052; Mul 1020 945 1201; Add 1651 1651 1020; Sub 1514 1514 1651; Mul 1651 991 1514;
  Div 1361 1361 980; Mul 1020 1306 1314; Sub 1361 1361 1020; Mul 1020 990 1361; Add 1651 1651 1020;
  Add 1120 1120 1651; Mul 1651 951 1052; Mul 1020 945 1128; Add 1651 1651 1020; Sub 1430 1430 1651;
  Mul 1651 993 1430; Div 1280 1280 980; Mul 1020 1626 1314; Sub 1280 1280 1020; Mul 1020 992 1280;
  Add 1651 1651 1020; Add 1120 1120 1651; Mul 1651 953 1052; Mul 1020 945 1605; Add 1651 1651 1020;
  Sub 1359 1359 1651; Mul 1651 995 1359; Div 1533 1533 980; Mul 1020 1530 1314; Sub 1533 1533 1020;
  Mul 1020 994 1533; Add 1651 1651 1020; Add 1120 1120 1651; Mul 1651 955 1052; Mul 1020 945 1259;
  Add 1651 1651 1020; Sub 1661 1661 1651; Mul 1651 997 1661; Div 1028 1028 980; Mul 1020 1472 1314;
  Sub 1028 1028 1020; Mul 1020 996 1028; Add 1651 1651 1020; Add 1120 1120 1651; Mul 1651 986 1120;
  Mul 1020 987 1650; Add 1651 1651 1020; Sub 1298 1298 1651; Div 1651 1298 999; Mul 1298 998 1298;
  Mul 1020 989 1120; Mul 1674 987 1561; Add 1020 1020 1674; Sub 1385 1385 1020; Mul 1020 1000 1385;
  Add 1298 1298 1020; Mul 1020 991 1120; Mul 1674 987 1361; Add 1020 1020 1674; Sub 1514 1514 1020;
  Mul 1020 1001 1514; Add 1298 1298 1020; Mul 1020 993 1120; Mul 1674 987 1280; Add 1020 1020 1674;
  Sub 1430 1430 1020; Mul 1020 1002 1430; Add 1298 1298 1020; Mul 1020 995 1120; Mul 1674 987 1533;
  Add 1020 1020 1674; Sub 1359 1359 1020; Mul 1020 1003 1359; Add 1298 1298 1020; Mul 1020 997 1120;
  Mul 1674 987 1028; Add 1020 1020 1674; Sub 1661 1661 1020; Mul 1020 1004 1661; Add 1298 1298 1020;
  Div 1298 1298 1095; Mul 1020 1596 1298; Sub 1651 1651 1020; Mul 1651 211 1651; Mul 1020 1005 1076;
  Sub 1651 1651 1020; Div 1385 1385 999; Mul 1020 1331 1298; Sub 1385 1385 1020; Mul 1385 779 1385;
  Mul 1020 1007 1115; Sub 1385 1385 1020; Add 1651 1651 1385; Div 1514 1514 999; Mul 1385 1080 1298;
  Sub 1514 1514 1385; Mul 1514 767 1514; Mul 1385 1008 1498; Add 1514 1514 1385; Add 1651 1651 1514;
  Div 1430 1430 999; Mul 1514 1056 1298; Sub 1430 1430 1514; Mul 1430 775 1430; Mul 1514 1009 1062;
  Sub 1430 1430 1514; Add 1651 1651 1430; Div 1359 1359 999; Mul 1430 1068 1298; Sub 1359 1359 1430;
  Mul 1359 815 1359; Mul 1430 1010 1322; Add 1359 1359 1430; Add 1651 1651 1359; Div 1661 1661 999;
  Mul 1359 1178 1298; Sub 1661 1661 1359; Mul 1661 833 1661; Mul 1359 1011 1202; Add 1661 1661 1359;
  Add 1651 1651 1661; Div 1651 1651 999; Mul 1298 1033 1298; Sub 1651 1651 1298; Mul 1298 756 1651;
  Add 1276 1276 1298; Sub 1303 1303 1276; Mul 1301 1012 1301; Mul 1650 211 1650; Mul 1276 986 1076;
  Sub 1650 1650 1276; Mul 1561 779 1561; Mul 1276 989 1115; Sub 1561 1561 1276; Add 1650 1650 1561;
  Mul 1361 767 1361; Mul 1561 991 1498; Add 1361 1361 1561; Add 1650 1650 1361; Mul 1280 775 1280;
  Mul 1361 993 1062; Sub 1280 1280 1361; Add 1650 1650 1280; Mul 1533 815 1533; Mul 1280 995 1322;
  Add 1533 1533 1280; Add 1650 1650 1533; Mul 1028 833 1028; Mul 1533 997 1202].
Definition casadi_f0_718 : list instruction := [
  Add 1028 1028 1533; Add 1650 1650 1028; Mul 1120 1006 1120; Mul 1028 987 1651; Add 1120 1120 1028;
  Sub 1650 1650 1120; Div 1650 1650 980; Mul 1314 1534 1314; Sub 1650 1650 1314; Mul 1314 957 1650;
  Add 1301 1301 1314; Sub 1303 1303 1301; Mul 1321 1013 1321; Mul 1538 211 1538; Mul 1301 944 1076;
  Sub 1538 1538 1301; Mul 1387 779 1387; Mul 1301 947 1115; Sub 1387 1387 1301; Add 1538 1538 1387;
  Mul 1201 767 1201; Mul 1387 949 1498; Add 1201 1201 1387; Add 1538 1538 1201; Mul 1128 775 1128;
  Mul 1201 951 1062; Sub 1128 1128 1201; Add 1538 1538 1128; Mul 1605 815 1605; Mul 1128 953 1322;
  Add 1605 1605 1128; Add 1538 1538 1605; Mul 1259 833 1259; Mul 1605 955 1202; Add 1259 1259 1605;
  Add 1538 1538 1259; Mul 1052 1006 1052; Mul 1259 945 1651; Add 1052 1052 1259; Sub 1538 1538 1052;
  Mul 1117 1012 1117; Mul 1052 973 1650; Add 1117 1117 1052; Sub 1538 1538 1117; Div 1538 1538 938;
  Mul 1222 1397 1222; Sub 1538 1538 1222; Mul 1222 922 1538; Add 1321 1321 1222; Sub 1303 1303 1321;
  Mul 1635 1014 1635; Mul 1309 779 1309; Mul 1321 910 1115; Sub 1309 1309 1321; Mul 1678 211 1678;
  Mul 1321 912 1076; Sub 1678 1678 1321; Sub 1309 1309 1678; Mul 1307 767 1307; Mul 1678 914 1498;
  Add 1307 1307 1678; Add 1309 1309 1307; Mul 1395 775 1395; Mul 1307 916 1062; Sub 1395 1395 1307;
  Sub 1309 1309 1395; Mul 1519 815 1519; Mul 1395 918 1322; Add 1519 1519 1395; Sub 1309 1309 1519;
  Mul 1373 833 1373; Mul 1519 920 1202; Add 1373 1373 1519; Sub 1309 1309 1373; Mul 1408 1006 1408;
  Mul 1373 911 1651; Add 1408 1408 1373; Sub 1309 1309 1408; Mul 1464 1012 1464; Mul 1408 967 1650;
  Add 1464 1464 1408; Sub 1309 1309 1464; Mul 1544 1013 1544; Mul 1464 932 1538; Add 1544 1544 1464;
  Sub 1309 1309 1544; Div 1309 1309 905; Mul 1356 1553 1356; Sub 1309 1309 1356; Mul 1356 895 1309;
  Add 1635 1635 1356; Sub 1303 1303 1635; Mul 1288 1015 1288; Mul 1092 211 1092; Mul 1076 881 1076;
  Sub 1092 1092 1076; Mul 1531 779 1531; Mul 1115 884 1115; Sub 1531 1531 1115; Add 1092 1092 1531;
  Mul 1269 767 1269; Mul 1498 886 1498; Add 1269 1269 1498; Add 1092 1092 1269; Mul 1266 775 1266;
  Mul 1062 888 1062; Sub 1266 1266 1062; Add 1092 1092 1266; Mul 1508 815 1508; Mul 1322 890 1322;
  Add 1508 1508 1322; Add 1092 1092 1508; Mul 1669 833 1669; Mul 1202 892 1202; Add 1669 1669 1202;
  Add 1092 1092 1669; Mul 1208 1006 1208; Mul 1669 882 1651; Add 1208 1208 1669; Sub 1092 1092 1208;
  Mul 1600 1012 1600; Mul 1208 959 1650; Add 1600 1600 1208; Sub 1092 1092 1600; Mul 1026 1013 1026;
  Mul 1600 924 1538; Add 1026 1026 1600; Sub 1092 1092 1026; Mul 1250 1014 1250; Mul 1026 897 1309;
  Add 1250 1250 1026; Sub 1092 1092 1250; Div 1092 1092 65; Mul 1592 1623 1592; Sub 1092 1092 1592;
  Mul 1592 875 1092; Add 1288 1288 1592; Sub 1303 1303 1288; Div 1303 1303 92; Mul 1290 759 1290;
  Sub 1303 1303 1290; Add 1485 1485 1303; Out 2 6 1485; Add 1532 1532 1092; Out 2 7 1532; Sub 1309 1309 1136;
  Out 2 8 1309; Add 1625 1625 1538; Out 2 9 1625].
Definition casadi_f0_719 : list instruction := [
  Add 1492 1492 1650; Out 2 10 1492; Add 1651 1596 1651; Out 2 11 1651; Arg 1651 2 18; Out 2 12 1651;
  Arg 1492 2 19; Out 2 13 1492; Arg 1650 2 20; Out 2 14 1650; Arg 1625 2 21; Out 2 15 1625; Arg 1538 2 22;
  Out 2 16 1538; Arg 1309 2 23; Out 2 17 1309; Mul 1136 756 1331; Sub 1136 777 1136; Mul 1532 987 1331;
  Sub 1532 989 1532; Div 1532 1532 980; Mul 1092 957 1532; Sub 1136 1136 1092; Mul 1092 945 1331;
  Sub 1092 947 1092; Mul 1485 973 1532; Sub 1092 1092 1485; Div 1092 1092 938; Mul 1485 922 1092;
  Sub 1136 1136 1485; Mul 1485 911 1331; Sub 1485 910 1485; Mul 1303 967 1532; Sub 1485 1485 1303;
  Mul 1303 932 1092; Sub 1485 1485 1303; Div 1485 1485 905; Mul 1303 895 1485; Sub 1136 1136 1303;
  Mul 1303 882 1331; Sub 1303 884 1303; Mul 1290 959 1532; Sub 1303 1303 1290; Mul 1290 924 1092;
  Sub 1303 1303 1290; Mul 1290 897 1485; Sub 1303 1303 1290; Div 1303 1303 65; Mul 1290 875 1303;
  Sub 1136 1136 1290; Div 1136 1136 92; Arg 1290 2 14; Mul 1288 8 1290; Mul 1592 10 1288; Arg 1250 2 17;
  Mul 1026 16 1250; Mul 1600 21 1026; Mul 1250 15 1250; Mul 1208 18 1250; Mul 1669 14 1026; Add 1208 1208 1669;
  Mul 1669 15 1208; Sub 1600 1600 1669; Mul 1669 18 1026; Mul 1202 14 1250; Sub 1669 1669 1202;
  Mul 1669 16 1669; Mul 1202 17 1250; Sub 1669 1669 1202; Sub 1202 1600 1669; Mul 1508 28 1250;
  Mul 1322 26 1026; Add 1508 1508 1322; Mul 1322 1031 1508; Mul 1266 28 1026; Mul 1062 26 1250;
  Sub 1266 1266 1062; Mul 1062 29 1266; Sub 1269 1322 1062; Mul 1269 20 1269; Add 1202 1202 1269;
  Mul 1062 20 1062; Add 1600 1600 1062; Add 1202 1202 1600; Mul 1322 20 1322; Add 1669 1669 1322;
  Add 1669 1669 1600; Add 1322 1202 1669; Mul 1669 19 1669; Arg 1062 2 16; Mul 1269 35 1062; Mul 1498 30 1269;
  Sub 1669 1669 1498; Mul 1062 19 1062; Mul 1498 41 1062; Mul 1531 42 1026; Mul 1115 40 1250;
  Sub 1531 1531 1115; Mul 1115 43 1026; Sub 1531 1531 1115; Mul 1115 44 1266; Add 1531 1531 1115;
  Mul 1115 35 1531; Add 1498 1498 1115; Sub 1669 1669 1498; Mul 1498 19 1669; Mul 1115 38 1269;
  Sub 1498 1498 1115; Mul 1531 19 1531; Mul 1115 41 1269; Sub 1531 1531 1115; Mul 1115 12 1062;
  Mul 1202 35 1202; Add 1115 1115 1202; Sub 1531 1531 1115; Mul 1115 35 1531; Mul 1202 46 1062;
  Add 1115 1115 1202; Sub 1498 1498 1115; Sub 1322 1322 1498; Sub 1322 1322 1600; Mul 1115 50 1508;
  Mul 1202 1039 1115; Mul 1076 50 1266; Mul 1635 19 1076; Mul 1356 49 1269; Sub 1635 1635 1356;
  Mul 1356 51 1062; Sub 1635 1635 1356; Mul 1356 1041 1635; Sub 1544 1202 1356; Mul 1544 37 1544;
  Add 1322 1322 1544; Mul 1544 49 1062; Mul 1464 35 1076; Add 1544 1544 1464; Mul 1464 51 1269;
  Sub 1544 1544 1464; Mul 1464 64 1544; Add 1356 1464 1356; Mul 1356 37 1356; Add 1356 1600 1356;
  Add 1322 1322 1356; Mul 1408 43 1250; Mul 1373 42 1250; Mul 1519 40 1026; Add 1373 1373 1519;
  Sub 1408 1408 1373; Mul 1373 44 1508].
Definition casadi_f0_720 : list instruction := [
  Sub 1408 1408 1373; Mul 1373 67 1408; Mul 1519 19 1373; Mul 1395 71 1269; Sub 1519 1519 1395;
  Mul 1395 75 1062; Mul 1208 16 1208; Mul 1307 21 1250; Add 1208 1208 1307; Mul 1508 74 1508; Mul 1266 20 1266;
  Mul 1266 34 1266; Sub 1508 1508 1266; Add 1208 1208 1508; Add 1508 1208 1208; Mul 1266 35 1508;
  Sub 1395 1395 1266; Add 1519 1519 1395; Mul 1395 73 1062; Mul 1266 35 1208; Sub 1395 1395 1266;
  Mul 1266 19 1408; Mul 1307 70 1269; Sub 1266 1266 1307; Add 1395 1395 1266; Sub 1519 1519 1395;
  Mul 1395 76 1115; Mul 1266 37 1544; Mul 1307 57 1266; Sub 1395 1395 1307; Sub 1519 1519 1395;
  Mul 1395 67 1519; Mul 1395 66 1395; Arg 1307 2 15; Mul 1678 53 1307; Mul 1321 77 1678; Sub 1395 1395 1321;
  Mul 1307 66 1307; Mul 1321 11 1307; Mul 1222 53 1322; Add 1321 1321 1222; Sub 1395 1395 1321;
  Mul 1321 53 1395; Mul 1222 78 1307; Add 1321 1321 1222; Add 1322 1322 1321; Sub 1322 1322 1356;
  Mul 1222 87 1678; Mul 1117 83 1115; Mul 1052 66 1117; Add 1222 1222 1052; Mul 1052 88 1307; Mul 1544 83 1544;
  Mul 1259 53 1544; Add 1052 1052 1259; Add 1222 1222 1052; Mul 1052 1054 1222; Mul 1259 83 1635;
  Mul 1605 1058 1259; Sub 1128 1052 1605; Mul 1128 80 1128; Add 1322 1322 1128; Add 1356 1356 1321;
  Mul 1321 66 1544; Mul 1128 88 1678; Sub 1321 1321 1128; Mul 1128 87 1307; Mul 1201 53 1117;
  Sub 1128 1128 1201; Add 1321 1321 1128; Mul 1128 93 1321; Add 1605 1128 1605; Mul 1605 80 1605;
  Add 1356 1356 1605; Add 1322 1322 1356; Mul 1605 9 1322; Add 1592 1592 1605; Mul 1395 66 1395;
  Mul 1605 78 1678; Sub 1395 1395 1605; Sub 1395 1395 1519; Mul 1519 72 1222; Mul 1605 80 1321;
  Mul 1201 63 1605; Sub 1519 1519 1201; Sub 1395 1395 1519; Mul 1519 67 1395; Mul 1519 8 1519; Mul 1290 9 1290;
  Mul 1201 97 1290; Sub 1519 1519 1201; Add 1592 1592 1519; Mul 1519 9 1592; Mul 1201 84 1288;
  Add 1519 1519 1201; Sub 1201 1519 1356; Mul 1321 104 1321; Mul 1387 8 1321; Mul 1301 103 1290;
  Sub 1387 1387 1301; Mul 1301 105 1288; Mul 1314 104 1222; Mul 1120 9 1314; Sub 1301 1301 1120;
  Sub 1387 1387 1301; Mul 1301 33 1387; Mul 1120 104 1259; Mul 1028 1066 1120; Add 1533 1301 1028;
  Mul 1533 100 1533; Sub 1201 1201 1533; Mul 1592 8 1592; Mul 1533 84 1290; Sub 1592 1592 1533;
  Sub 1592 1592 1395; Mul 1395 103 1288; Mul 1533 9 1321; Add 1395 1395 1533; Mul 1533 105 1290;
  Mul 1280 8 1314; Add 1533 1533 1280; Sub 1395 1395 1533; Mul 1533 96 1395; Mul 1280 100 1387;
  Mul 1361 117 1280; Sub 1533 1533 1361; Add 1592 1592 1533; Mul 1592 67 1592; Mul 1592 114 1592; Arg 1533 2 13;
  Mul 1361 113 1533; Mul 1561 116 1361; Sub 1592 1592 1561; Mul 1533 114 1533; Mul 1561 119 1533;
  Sub 1322 1322 1519; Sub 1322 1322 1356; Mul 1356 1044 1395; Sub 1028 1356 1028; Mul 1028 100 1028;
  Add 1322 1322 1028; Sub 1322 1322 1201; Mul 1322 113 1322; Add 1561 1561 1322; Sub 1592 1592 1561;
  Mul 1592 113 1592; Mul 1561 118 1533; Add 1592 1592 1561; Sub 1201 1201 1592].
Definition casadi_f0_721 : list instruction := [
  Mul 1387 120 1387; Mul 1592 114 1387; Mul 1561 60 1361; Sub 1592 1592 1561; Mul 1561 121 1533;
  Mul 1322 120 1395; Mul 1028 113 1322; Add 1561 1561 1028; Add 1592 1592 1561; Mul 1561 112 1592;
  Mul 1028 120 1120; Mul 1519 123 1028; Add 1561 1561 1519; Mul 1561 99 1561; Sub 1201 1201 1561;
  Mul 1592 125 1592; Mul 1592 110 1592; Mul 1561 125 1028; Mul 1561 126 1561; Add 1592 1592 1561;
  Mul 1592 122 1592; Add 1201 1201 1592; Div 1592 1201 92; Mul 1201 6 1201; Mul 1561 130 1288; Mul 1531 19 1531;
  Mul 1519 46 1269; Sub 1531 1531 1519; Mul 1669 35 1669; Mul 1519 38 1062; Add 1669 1669 1519;
  Add 1531 1531 1669; Mul 1266 52 1266; Mul 1669 76 1635; Add 1266 1266 1669; Add 1531 1531 1266;
  Mul 1266 66 1531; Mul 1669 129 1678; Sub 1266 1266 1669; Mul 1669 132 1307; Mul 1519 70 1062;
  Mul 1276 35 1408; Add 1519 1519 1276; Mul 1276 73 1269; Mul 1298 19 1208; Add 1276 1276 1298;
  Add 1519 1519 1276; Mul 1508 19 1508; Mul 1276 75 1269; Add 1508 1508 1276; Mul 1373 35 1373;
  Mul 1276 71 1062; Add 1373 1373 1276; Add 1508 1508 1373; Sub 1519 1519 1508; Mul 1508 133 1115;
  Mul 1635 37 1635; Mul 1635 57 1635; Sub 1508 1508 1635; Sub 1519 1519 1508; Mul 1508 53 1519;
  Add 1669 1669 1508; Add 1266 1266 1669; Mul 1605 27 1605; Mul 1669 72 1259; Add 1605 1605 1669;
  Add 1266 1266 1605; Mul 1605 9 1266; Add 1561 1561 1605; Add 1605 1519 1519; Mul 1605 66 1605;
  Mul 1669 136 1678; Sub 1605 1605 1669; Mul 1669 129 1307; Mul 1508 53 1531; Add 1669 1669 1508;
  Sub 1605 1605 1669; Mul 1669 66 1519; Mul 1508 132 1678; Sub 1669 1669 1508; Sub 1605 1605 1669;
  Mul 1222 138 1222; Mul 1669 80 1259; Mul 1669 63 1669; Sub 1222 1222 1669; Sub 1605 1605 1222;
  Add 1222 1605 1605; Mul 1222 8 1222; Mul 1669 139 1290; Sub 1222 1222 1669; Add 1561 1561 1222;
  Mul 1222 8 1605; Mul 1669 137 1290; Sub 1222 1222 1669; Sub 1561 1561 1222; Mul 1395 140 1395;
  Mul 1222 100 1120; Mul 1222 117 1222; Sub 1395 1395 1222; Add 1561 1561 1395; Mul 1395 141 1028;
  Mul 1395 121 1395; Mul 1222 142 1322; Add 1395 1395 1222; Sub 1561 1561 1395; Mul 1561 114 1561;
  Mul 1395 134 1361; Sub 1561 1561 1395; Mul 1395 145 1533; Mul 1222 8 1266; Mul 1669 130 1290;
  Sub 1222 1222 1669; Mul 1669 137 1288; Mul 1508 9 1605; Add 1669 1669 1508; Sub 1222 1222 1669;
  Mul 1280 111 1280; Mul 1669 96 1120; Add 1280 1280 1669; Add 1222 1222 1280; Mul 1280 141 1387;
  Mul 1280 124 1280; Mul 1028 146 1028; Add 1280 1280 1028; Sub 1222 1222 1280; Mul 1222 113 1222;
  Add 1395 1395 1222; Sub 1561 1561 1395; Mul 1395 1073 1561; Add 1201 1201 1395; Mul 1395 150 1533;
  Mul 1222 149 1288; Mul 1280 148 1120; Mul 1028 147 1314; Mul 1669 109 1028; Sub 1280 1280 1669;
  Add 1605 1605 1280; Mul 1280 9 1605; Add 1222 1222 1280; Mul 1120 151 1120; Mul 1280 147 1321;
  Mul 1669 109 1280; Add 1120 1120 1669; Add 1266 1266 1120; Mul 1120 8 1266; Mul 1669 152 1290;
  Sub 1120 1120 1669; Sub 1222 1222 1120; Mul 1120 148 1288].
Definition casadi_f0_722 : list instruction := [
  Mul 1669 9 1028; Sub 1120 1120 1669; Mul 1669 8 1280; Mul 1508 151 1290; Sub 1669 1669 1508;
  Sub 1120 1120 1669; Mul 1669 108 1120; Add 1222 1222 1669; Mul 1222 113 1222; Add 1395 1395 1222;
  Mul 1222 152 1288; Mul 1266 9 1266; Add 1222 1222 1266; Mul 1605 8 1605; Mul 1266 149 1290;
  Sub 1605 1605 1266; Add 1222 1222 1605; Mul 1605 151 1288; Mul 1266 9 1280; Add 1605 1605 1266;
  Mul 1266 148 1290; Mul 1669 8 1028; Add 1266 1266 1669; Sub 1605 1605 1266; Mul 1605 108 1605;
  Add 1222 1222 1605; Mul 1222 114 1222; Mul 1605 155 1361; Sub 1222 1222 1605; Add 1395 1395 1222;
  Mul 1222 1050 1395; Add 1201 1201 1222; Mul 1222 159 1288; Mul 1605 156 1544; Mul 1605 82 1605;
  Mul 1266 157 1259; Add 1605 1605 1266; Sub 1531 1531 1605; Mul 1605 66 1531; Mul 1266 158 1678;
  Sub 1605 1605 1266; Mul 1266 161 1307; Mul 1259 156 1259; Mul 1259 87 1259; Mul 1669 160 1117;
  Sub 1259 1259 1669; Sub 1519 1519 1259; Mul 1259 53 1519; Add 1266 1266 1259; Add 1605 1605 1266;
  Mul 1266 9 1605; Add 1222 1222 1266; Mul 1519 66 1519; Mul 1266 161 1678; Sub 1519 1519 1266;
  Mul 1266 158 1307; Mul 1531 53 1531; Add 1266 1266 1531; Sub 1519 1519 1266; Mul 1266 8 1519;
  Mul 1531 163 1290; Sub 1266 1266 1531; Add 1222 1222 1266; Mul 1266 167 1307; Mul 1531 166 1544;
  Mul 1259 53 1531; Add 1266 1266 1259; Mul 1259 164 1678; Mul 1669 156 1117; Mul 1508 66 1669;
  Add 1259 1259 1508; Sub 1266 1266 1259; Mul 1259 8 1266; Mul 1508 165 1290; Sub 1259 1259 1508;
  Mul 1508 169 1288; Mul 1531 66 1531; Mul 1635 167 1678; Sub 1531 1531 1635; Mul 1635 164 1307;
  Mul 1669 53 1669; Sub 1635 1635 1669; Sub 1531 1531 1635; Mul 1635 9 1531; Add 1508 1508 1635;
  Sub 1259 1259 1508; Mul 1259 108 1259; Sub 1222 1222 1259; Mul 1222 114 1222; Mul 1259 162 1361;
  Sub 1222 1222 1259; Mul 1259 170 1533; Mul 1605 8 1605; Mul 1508 159 1290; Sub 1605 1605 1508;
  Mul 1508 163 1288; Mul 1519 9 1519; Add 1508 1508 1519; Sub 1605 1605 1508; Mul 1508 165 1288;
  Mul 1519 9 1266; Add 1508 1508 1519; Mul 1519 8 1531; Mul 1635 169 1290; Sub 1519 1519 1635;
  Add 1508 1508 1519; Mul 1519 108 1508; Add 1605 1605 1519; Mul 1605 113 1605; Add 1259 1259 1605;
  Sub 1222 1222 1259; Mul 1259 1070 1222; Add 1201 1201 1259; Mul 1259 179 1288; Mul 1605 177 1307;
  Mul 1519 174 1076; Mul 1076 173 1076; Mul 1635 49 1076; Add 1519 1519 1635; Add 1519 1519 1600;
  Mul 1635 174 1062; Mul 1669 35 1076; Add 1635 1635 1669; Mul 1669 176 1269; Sub 1635 1635 1669;
  Mul 1669 62 1635; Mul 1373 176 1062; Mul 1276 19 1076; Mul 1298 174 1269; Sub 1276 1276 1298;
  Sub 1373 1373 1276; Mul 1276 48 1373; Sub 1669 1669 1276; Add 1669 1519 1669; Mul 1276 53 1669;
  Add 1605 1605 1276; Mul 1276 176 1115; Sub 1408 1408 1276; Mul 1276 19 1408; Mul 1298 180 1269;
  Sub 1276 1276 1298; Mul 1298 182 1062; Mul 1076 56 1076; Mul 1115 174 1115; Sub 1076 1076 1115;
  Sub 1076 1076 1208; Mul 1208 35 1076; Add 1298 1298 1208; Add 1276 1276 1298].
Definition casadi_f0_723 : list instruction := [
  Mul 1298 55 1635; Add 1276 1276 1298; Mul 1298 66 1276; Mul 1208 181 1678; Sub 1298 1298 1208;
  Sub 1605 1605 1298; Mul 1298 86 1635; Sub 1605 1605 1298; Mul 1298 9 1605; Add 1259 1259 1298;
  Mul 1298 181 1307; Mul 1276 53 1276; Add 1298 1298 1276; Mul 1669 66 1669; Mul 1276 177 1678;
  Sub 1669 1669 1276; Add 1298 1298 1669; Mul 1669 91 1635; Add 1298 1298 1669; Mul 1669 8 1298;
  Mul 1276 184 1290; Sub 1669 1669 1276; Add 1259 1259 1669; Mul 1635 102 1635; Mul 1669 66 1373;
  Mul 1276 178 1678; Sub 1669 1669 1276; Mul 1276 8 1669; Mul 1208 185 1290; Sub 1276 1276 1208;
  Mul 1208 187 1288; Mul 1115 178 1307; Mul 1661 53 1373; Add 1115 1115 1661; Mul 1661 9 1115;
  Add 1208 1208 1661; Add 1276 1276 1208; Mul 1276 108 1276; Sub 1635 1635 1276; Add 1259 1259 1635;
  Mul 1259 114 1259; Mul 1635 183 1361; Sub 1259 1259 1635; Mul 1635 186 1533; Mul 1605 8 1605;
  Mul 1276 179 1290; Sub 1605 1605 1276; Mul 1276 184 1288; Mul 1298 9 1298; Add 1276 1276 1298;
  Sub 1605 1605 1276; Mul 1276 185 1288; Mul 1298 9 1669; Add 1276 1276 1298; Mul 1298 8 1115;
  Mul 1208 187 1290; Sub 1298 1298 1208; Sub 1276 1276 1298; Mul 1298 108 1276; Add 1605 1605 1298;
  Mul 1605 113 1605; Add 1635 1635 1605; Sub 1259 1259 1635; Mul 1635 1059 1259; Add 1201 1201 1635;
  Mul 1635 199 1288; Mul 1605 196 1062; Mul 1298 197 1026; Mul 1208 195 1250; Sub 1298 1298 1208;
  Mul 1208 190 1250; Mul 1661 192 1026; Add 1208 1208 1661; Mul 1661 198 1208; Add 1298 1298 1661;
  Mul 1661 35 1298; Add 1605 1605 1661; Mul 1661 189 1269; Mul 1359 25 1208; Mul 1430 190 1026;
  Mul 1514 192 1250; Sub 1430 1430 1514; Mul 1514 32 1430; Add 1359 1359 1514; Mul 1514 19 1359;
  Add 1661 1661 1514; Sub 1605 1605 1661; Mul 1661 48 1208; Mul 1514 19 1430; Mul 1385 194 1269;
  Sub 1514 1514 1385; Mul 1385 55 1514; Add 1661 1661 1385; Sub 1605 1605 1661; Mul 1661 66 1605;
  Mul 1385 193 1678; Sub 1661 1661 1385; Mul 1385 202 1307; Mul 1020 198 1430; Mul 1674 197 1250;
  Mul 1025 195 1026; Add 1674 1674 1025; Sub 1020 1020 1674; Mul 1674 62 1514; Mul 1025 194 1062;
  Mul 1430 35 1430; Add 1025 1025 1430; Mul 1430 48 1025; Sub 1674 1674 1430; Add 1674 1020 1674;
  Mul 1430 53 1674; Add 1385 1385 1430; Add 1661 1661 1385; Mul 1385 86 1514; Sub 1661 1661 1385;
  Mul 1385 9 1661; Add 1635 1635 1385; Mul 1674 66 1674; Mul 1385 202 1678; Sub 1674 1674 1385;
  Mul 1385 193 1307; Mul 1605 53 1605; Add 1385 1385 1605; Sub 1674 1674 1385; Mul 1385 91 1514;
  Add 1674 1674 1385; Mul 1385 8 1674; Mul 1605 205 1290; Sub 1385 1385 1605; Add 1635 1635 1385;
  Mul 1514 102 1514; Mul 1385 66 1025; Mul 1605 203 1678; Sub 1385 1385 1605; Mul 1605 191 1307;
  Mul 1430 53 1208; Sub 1605 1605 1430; Add 1385 1385 1605; Mul 1605 8 1385; Mul 1430 206 1290;
  Sub 1605 1605 1430; Mul 1430 208 1288; Mul 1183 191 1678; Mul 1597 66 1208; Add 1183 1183 1597;
  Mul 1597 203 1307; Mul 1091 53 1025; Add 1597 1597 1091; Add 1183 1183 1597].
Definition casadi_f0_724 : list instruction := [
  Mul 1597 9 1183; Sub 1430 1430 1597; Sub 1605 1605 1430; Mul 1605 108 1605; Sub 1514 1514 1605;
  Add 1635 1635 1514; Mul 1635 114 1635; Mul 1514 204 1361; Sub 1635 1635 1514; Mul 1514 207 1533;
  Mul 1661 8 1661; Mul 1605 199 1290; Sub 1661 1661 1605; Mul 1605 205 1288; Mul 1674 9 1674;
  Add 1605 1605 1674; Sub 1661 1661 1605; Mul 1605 206 1288; Mul 1674 9 1385; Add 1605 1605 1674;
  Mul 1674 208 1290; Mul 1430 8 1183; Add 1674 1674 1430; Sub 1605 1605 1674; Mul 1674 108 1605;
  Add 1661 1661 1674; Mul 1661 113 1661; Add 1514 1514 1661; Sub 1635 1635 1514; Mul 1514 1043 1635;
  Add 1201 1201 1514; Div 1201 1201 1085; Mul 1514 1072 1201; Sub 1592 1592 1514; Mul 1514 211 1592;
  Mul 1661 216 1533; Arg 1674 2 12; Mul 1430 215 1674; Mul 1597 113 1430; Sub 1661 1661 1597; Mul 1597 218 1661;
  Mul 1091 114 1651; Mul 1335 0 1361; Sub 1091 1091 1335; Mul 1335 217 1091; Add 1597 1597 1335;
  Mul 1674 216 1674; Mul 1335 1 1674; Mul 1081 215 1492; Add 1335 1335 1081; Sub 1597 1597 1335;
  Mul 1335 0 1533; Mul 1081 113 1651; Add 1335 1335 1081; Mul 1081 220 1335; Mul 1685 114 1430;
  Mul 1368 216 1361; Add 1685 1685 1368; Mul 1368 221 1685; Sub 1081 1081 1368; Sub 1597 1597 1081;
  Mul 1081 214 1597; Mul 1368 213 1081; Mul 1368 212 1368; Mul 1127 225 1368; Mul 1101 114 1674;
  Mul 1470 215 1361; Sub 1101 1101 1470; Mul 1470 101 1101; Mul 1435 107 1430; Sub 1470 1470 1435;
  Mul 1435 223 1470; Add 1071 1127 1435; Mul 1690 216 1492; Mul 1546 1 1430; Sub 1690 1690 1546;
  Mul 1546 113 1674; Mul 1439 215 1533; Add 1546 1546 1439; Mul 1439 218 1546; Mul 1675 228 1091;
  Add 1439 1439 1675; Add 1690 1690 1439; Mul 1439 221 1101; Mul 1675 224 1335; Add 1439 1439 1675;
  Sub 1690 1690 1439; Mul 1439 214 1690; Mul 1675 213 1439; Mul 1675 212 1675; Mul 1670 231 1675;
  Mul 1434 101 1685; Mul 1398 107 1674; Add 1434 1434 1398; Mul 1398 230 1434; Sub 1670 1670 1398;
  Sub 1398 1071 1670; Add 1435 1435 1127; Sub 1670 1435 1670; Add 1127 1398 1670; Mul 1048 144 1533;
  Mul 1333 215 1048; Mul 1423 240 1674; Add 1333 1333 1423; Mul 1423 236 1361; Mul 1501 238 1533;
  Add 1423 1423 1501; Mul 1501 220 1423; Mul 1407 237 1685; Add 1501 1501 1407; Sub 1333 1333 1501;
  Mul 1501 115 1430; Add 1333 1333 1501; Mul 1501 212 1434; Mul 1407 242 1501; Mul 1474 101 1533;
  Mul 1476 241 1474; Add 1407 1407 1476; Add 1407 1333 1407; Mul 1476 244 1407; Mul 1168 213 1690;
  Mul 1505 243 1168; Add 1192 1476 1505; Mul 1090 237 1101; Mul 1488 224 1423; Sub 1090 1090 1488;
  Mul 1048 216 1048; Mul 1488 240 1430; Sub 1048 1048 1488; Sub 1090 1090 1048; Mul 1048 115 1674;
  Sub 1090 1090 1048; Mul 1048 212 1470; Mul 1048 242 1048; Mul 1488 247 1474; Sub 1048 1048 1488;
  Sub 1048 1090 1048; Mul 1488 249 1048; Mul 1658 213 1597; Mul 1232 248 1658; Add 1254 1488 1232;
  Sub 1170 1192 1254; Sub 1127 1127 1170; Add 1232 1232 1488; Add 1505 1505 1476; Sub 1476 1232 1505;
  Add 1127 1127 1476; Mul 1476 9 1661; Mul 1488 217 1288].
Definition casadi_f0_725 : list instruction := [
  Add 1476 1476 1488; Mul 1488 8 1685; Mul 1170 220 1290; Add 1488 1488 1170; Sub 1476 1476 1488;
  Mul 1488 254 1476; Mul 1170 218 1288; Mul 1191 9 1091; Add 1170 1170 1191; Mul 1191 8 1335; Mul 1131 221 1290;
  Sub 1191 1191 1131; Sub 1170 1170 1191; Mul 1191 253 1170; Add 1488 1488 1191; Mul 1661 8 1661;
  Mul 1191 217 1290; Sub 1661 1661 1191; Mul 1191 220 1288; Mul 1131 9 1685; Sub 1191 1191 1131;
  Sub 1661 1661 1191; Mul 1191 257 1661; Mul 1131 221 1288; Mul 1248 9 1335; Add 1131 1131 1248;
  Mul 1248 8 1091; Mul 1236 218 1290; Sub 1248 1248 1236; Add 1131 1131 1248; Mul 1248 256 1131;
  Add 1191 1191 1248; Mul 1248 259 1674; Sub 1236 1492 1650; Mul 1700 215 1236; Add 1248 1248 1700;
  Sub 1191 1191 1248; Add 1488 1488 1191; Mul 1191 213 1488; Mul 1248 276 1191; Mul 1700 114 1288;
  Mul 1257 9 1361; Sub 1700 1700 1257; Mul 1257 8 1533; Mul 1327 113 1290; Sub 1257 1257 1327;
  Sub 1700 1700 1257; Mul 1257 260 1700; Mul 1327 9 1533; Mul 1098 113 1288; Add 1327 1327 1098;
  Mul 1098 8 1361; Mul 1106 114 1290; Add 1098 1098 1106; Sub 1327 1327 1098; Mul 1098 263 1327;
  Add 1257 1257 1098; Mul 1098 265 1257; Mul 1106 8 1101; Mul 1392 224 1290; Sub 1106 1106 1392;
  Mul 1392 9 1546; Mul 1121 228 1288; Add 1392 1392 1121; Add 1106 1106 1392; Mul 1392 262 1106;
  Add 1098 1098 1392; Mul 1392 127 1700; Mul 1121 268 1327; Add 1392 1392 1121; Mul 1121 216 1392;
  Mul 1198 267 1430; Sub 1121 1121 1198; Add 1098 1098 1121; Mul 1121 135 1476; Mul 1198 95 1674;
  Add 1121 1121 1198; Sub 1098 1098 1121; Mul 1121 102 1101; Mul 1198 108 1430; Sub 1121 1121 1198;
  Mul 1198 79 1106; Mul 1497 8 1546; Mul 1520 228 1290; Sub 1497 1497 1520; Mul 1520 9 1101; Mul 1442 224 1288;
  Add 1520 1520 1442; Sub 1497 1497 1520; Mul 1520 85 1497; Mul 1442 81 1430; Sub 1520 1520 1442;
  Add 1198 1198 1520; Add 1198 1121 1198; Mul 1520 269 1198; Mul 1520 275 1520; Mul 1442 79 1700;
  Mul 1241 85 1327; Add 1442 1442 1241; Mul 1241 102 1533; Sub 1442 1442 1241; Mul 1621 272 1442;
  Add 1520 1520 1621; Sub 1520 1098 1520; Mul 1621 258 1520; Add 1363 1248 1621; Mul 1022 254 1106;
  Mul 1369 265 1170; Add 1022 1022 1369; Mul 1369 216 1236; Mul 1419 259 1430; Sub 1369 1369 1419;
  Mul 1419 257 1497; Mul 1263 273 1131; Add 1419 1419 1263; Add 1369 1369 1419; Add 1022 1022 1369;
  Mul 1369 213 1022; Mul 1419 284 1369; Mul 1263 253 1257; Mul 1541 262 1476; Add 1263 1263 1541;
  Mul 1392 215 1392; Mul 1541 267 1674; Add 1392 1392 1541; Sub 1263 1263 1392; Mul 1392 95 1430;
  Mul 1541 135 1106; Add 1392 1392 1541; Add 1263 1263 1392; Mul 1392 79 1476; Mul 1541 85 1661;
  Mul 1606 81 1674; Sub 1541 1541 1606; Add 1392 1392 1541; Mul 1541 102 1685; Mul 1606 108 1674;
  Add 1541 1541 1606; Sub 1392 1392 1541; Mul 1606 269 1392; Mul 1575 275 1606; Mul 1603 283 1442;
  Add 1575 1575 1603; Sub 1575 1263 1575; Mul 1603 279 1575; Add 1207 1419 1603; Sub 1463 1363 1207;
  Mul 1346 292 1442; Mul 1564 288 1327].
Definition casadi_f0_726 : list instruction := [
  Mul 1527 287 1288; Mul 1409 108 1091; Mul 1477 9 1409; Add 1527 1527 1477; Mul 1477 102 1492;
  Mul 1289 108 1335; Add 1477 1477 1289; Mul 1289 8 1477; Mul 1319 289 1290; Sub 1289 1289 1319;
  Sub 1527 1527 1289; Mul 1289 264 1527; Add 1564 1564 1289; Mul 1289 291 1700; Mul 1409 8 1409;
  Mul 1319 287 1290; Sub 1409 1409 1319; Mul 1319 289 1288; Mul 1477 9 1477; Add 1319 1319 1477;
  Add 1409 1409 1319; Mul 1319 261 1409; Add 1289 1289 1319; Sub 1564 1564 1289; Mul 1289 281 1022;
  Mul 1319 278 1541; Sub 1289 1289 1319; Mul 1319 255 1121; Mul 1477 270 1488; Add 1319 1319 1477;
  Sub 1289 1289 1319; Add 1564 1564 1289; Mul 1289 213 1564; Mul 1289 269 1289; Mul 1319 275 1289;
  Add 1477 1346 1319; Mul 1325 288 1661; Mul 1573 256 1527; Add 1325 1325 1573; Mul 1573 295 1674;
  Mul 1512 102 1091; Mul 1653 215 1512; Add 1573 1573 1653; Sub 1325 1325 1573; Mul 1573 291 1476;
  Mul 1653 253 1409; Add 1573 1573 1653; Sub 1325 1325 1573; Mul 1573 296 1121; Mul 1653 254 1700;
  Mul 1227 261 1170; Add 1653 1653 1227; Mul 1227 257 1327; Mul 1180 264 1131; Add 1227 1227 1180;
  Add 1653 1653 1227; Mul 1227 270 1653; Add 1573 1573 1227; Mul 1227 274 1022; Mul 1180 278 1241;
  Sub 1227 1227 1180; Sub 1573 1573 1227; Add 1325 1325 1573; Mul 1573 213 1325; Mul 1573 269 1573;
  Mul 1227 282 1573; Mul 1180 297 1392; Add 1411 1227 1180; Mul 1557 216 1512; Mul 1157 295 1430;
  Sub 1557 1557 1157; Mul 1157 288 1497; Mul 1354 273 1527; Add 1157 1157 1354; Add 1557 1557 1157;
  Mul 1157 291 1106; Mul 1354 265 1409; Add 1157 1157 1354; Sub 1557 1557 1157; Mul 1157 274 1488;
  Mul 1354 255 1241; Sub 1157 1157 1354; Mul 1354 281 1653; Mul 1478 296 1541; Sub 1354 1354 1478;
  Sub 1157 1157 1354; Add 1557 1557 1157; Mul 1157 213 1557; Mul 1157 269 1157; Mul 1354 271 1157;
  Mul 1478 300 1198; Add 1618 1354 1478; Add 1319 1319 1346; Add 1346 1618 1319; Add 1411 1411 1346;
  Sub 1551 1477 1411; Add 1180 1180 1227; Add 1478 1478 1354; Add 1477 1478 1477; Add 1180 1180 1477;
  Sub 1319 1319 1180; Add 1551 1551 1319; Add 1603 1603 1419; Add 1621 1621 1248; Sub 1248 1603 1621;
  Add 1551 1551 1248; Sub 1463 1463 1551; Mul 1551 66 1476; Mul 1248 253 1678; Sub 1551 1551 1248;
  Mul 1248 53 1661; Mul 1419 256 1307; Add 1248 1248 1419; Sub 1551 1551 1248; Mul 1248 308 1551;
  Mul 1419 66 1170; Mul 1319 254 1678; Sub 1419 1419 1319; Mul 1319 257 1307; Mul 1354 53 1131;
  Add 1319 1319 1354; Sub 1419 1419 1319; Mul 1319 304 1419; Add 1248 1248 1319; Mul 1319 53 1476;
  Mul 1354 253 1307; Add 1319 1319 1354; Mul 1354 66 1661; Mul 1227 256 1678; Sub 1354 1354 1227;
  Add 1319 1319 1354; Mul 1354 311 1319; Mul 1227 254 1307; Mul 1638 53 1170; Add 1227 1227 1638;
  Mul 1638 66 1131; Mul 1339 257 1678; Sub 1638 1638 1339; Add 1227 1227 1638; Mul 1638 310 1227;
  Add 1354 1354 1638; Mul 1638 313 1674; Add 1339 1625 1236; Mul 1255 215 1339; Add 1638 1638 1255;
  Sub 1354 1354 1638; Add 1248 1248 1354; Mul 1354 213 1248; Mul 1638 330 1354].
Definition casadi_f0_727 : list instruction := [
  Mul 1255 66 1700; Mul 1132 261 1678; Sub 1255 1255 1132; Mul 1132 53 1327; Mul 1142 264 1307;
  Add 1132 1132 1142; Sub 1255 1255 1132; Mul 1132 314 1255; Mul 1142 53 1700; Mul 1458 261 1307;
  Add 1142 1142 1458; Mul 1458 66 1327; Mul 1316 264 1678; Sub 1458 1458 1316; Add 1142 1142 1458;
  Mul 1458 317 1142; Add 1132 1132 1458; Mul 1458 319 1132; Mul 1316 66 1106; Mul 1367 265 1678;
  Sub 1316 1316 1367; Mul 1367 53 1497; Mul 1456 273 1307; Add 1367 1367 1456; Sub 1316 1316 1367;
  Mul 1367 316 1316; Add 1458 1458 1367; Mul 1367 128 1255; Mul 1456 322 1142; Add 1367 1367 1456;
  Mul 1456 216 1367; Mul 1105 321 1430; Sub 1456 1456 1105; Add 1458 1458 1456; Mul 1456 131 1551;
  Mul 1105 68 1674; Add 1456 1456 1105; Sub 1458 1458 1456; Mul 1456 91 1106; Mul 1105 86 1497;
  Add 1456 1456 1105; Add 1456 1121 1456; Mul 1105 61 1316; Mul 1421 53 1106; Mul 1523 265 1307;
  Add 1421 1421 1523; Mul 1523 66 1497; Mul 1462 273 1678; Sub 1523 1523 1462; Add 1421 1421 1523;
  Mul 1523 54 1421; Mul 1462 47 1430; Sub 1523 1523 1462; Add 1105 1105 1523; Add 1105 1456 1105;
  Mul 1523 323 1105; Mul 1523 329 1523; Mul 1462 91 1700; Mul 1327 86 1327; Add 1462 1462 1327;
  Sub 1462 1462 1241; Mul 1327 61 1255; Mul 1550 54 1142; Add 1327 1327 1550; Add 1327 1462 1327;
  Mul 1550 326 1327; Add 1523 1523 1550; Sub 1523 1458 1523; Mul 1550 312 1523; Add 1332 1638 1550;
  Mul 1424 308 1316; Mul 1151 319 1419; Add 1424 1424 1151; Mul 1151 216 1339; Mul 1386 313 1430;
  Sub 1151 1151 1386; Mul 1386 311 1421; Mul 1645 327 1227; Add 1386 1386 1645; Add 1151 1151 1386;
  Add 1424 1424 1151; Mul 1151 213 1424; Mul 1386 338 1151; Mul 1645 304 1132; Mul 1467 316 1551;
  Add 1645 1645 1467; Mul 1367 215 1367; Mul 1467 321 1674; Add 1367 1367 1467; Sub 1645 1645 1367;
  Mul 1367 68 1430; Mul 1467 131 1316; Add 1367 1367 1467; Add 1645 1645 1367; Mul 1367 91 1476;
  Mul 1661 86 1661; Add 1367 1367 1661; Sub 1367 1367 1541; Mul 1661 61 1551; Mul 1467 54 1319;
  Mul 1572 47 1674; Sub 1467 1467 1572; Add 1661 1661 1467; Add 1661 1367 1661; Mul 1467 323 1661;
  Mul 1572 329 1467; Mul 1577 337 1327; Add 1572 1572 1577; Sub 1572 1645 1572; Mul 1577 333 1572;
  Add 1438 1386 1577; Sub 1433 1332 1438; Mul 1348 346 1327; Mul 1617 342 1255; Mul 1666 86 1236;
  Sub 1666 1666 1409; Mul 1409 66 1666; Mul 1646 341 1678; Sub 1409 1409 1646; Mul 1646 343 1307;
  Mul 1236 91 1236; Sub 1527 1527 1236; Mul 1236 53 1527; Add 1646 1646 1236; Sub 1409 1409 1646;
  Mul 1646 315 1409; Add 1617 1617 1646; Mul 1646 345 1142; Mul 1236 341 1307; Mul 1666 53 1666;
  Add 1236 1236 1666; Mul 1527 66 1527; Mul 1666 343 1678; Sub 1527 1527 1666; Add 1236 1236 1527;
  Mul 1527 318 1236; Add 1646 1646 1527; Add 1617 1617 1646; Mul 1646 332 1367; Mul 1527 335 1424;
  Add 1646 1646 1527; Mul 1527 309 1456; Mul 1666 324 1248; Add 1527 1527 1666; Sub 1646 1646 1527;
  Add 1617 1617 1646; Mul 1646 213 1617; Mul 1646 323 1646; Mul 1527 329 1646].
Definition casadi_f0_728 : list instruction := [
  Add 1666 1348 1527; Mul 1126 342 1551; Mul 1500 304 1409; Add 1126 1126 1500; Mul 1500 345 1319;
  Mul 1169 310 1236; Add 1500 1500 1169; Mul 1169 350 1674; Mul 1170 86 1170; Mul 1131 91 1131;
  Sub 1170 1170 1131; Sub 1512 1512 1170; Mul 1170 215 1512; Add 1169 1169 1170; Sub 1500 1500 1169;
  Add 1126 1126 1500; Mul 1500 349 1456; Mul 1169 308 1255; Mul 1170 315 1419; Add 1169 1169 1170;
  Mul 1170 311 1142; Mul 1131 318 1227; Add 1170 1170 1131; Add 1169 1169 1170; Mul 1170 324 1169;
  Add 1500 1500 1170; Mul 1170 332 1462; Mul 1131 328 1424; Add 1170 1170 1131; Sub 1500 1500 1170;
  Add 1126 1126 1500; Mul 1500 213 1126; Mul 1500 323 1500; Mul 1170 336 1500; Mul 1131 351 1661;
  Add 1601 1170 1131; Mul 1034 342 1316; Mul 1037 319 1409; Add 1034 1034 1037; Mul 1037 216 1512;
  Mul 1051 350 1430; Sub 1037 1037 1051; Mul 1051 345 1421; Mul 1570 327 1236; Add 1051 1051 1570;
  Add 1037 1037 1051; Add 1034 1034 1037; Mul 1037 309 1462; Mul 1051 328 1248; Add 1037 1037 1051;
  Mul 1051 349 1367; Mul 1570 335 1169; Add 1051 1051 1570; Sub 1037 1037 1051; Add 1034 1034 1037;
  Mul 1037 213 1034; Mul 1037 323 1037; Mul 1051 325 1037; Mul 1570 354 1105; Add 1591 1051 1570;
  Add 1527 1527 1348; Add 1348 1591 1527; Add 1601 1601 1348; Sub 1133 1666 1601; Add 1131 1131 1170;
  Add 1570 1570 1051; Add 1666 1570 1666; Add 1131 1131 1666; Sub 1527 1527 1131; Add 1133 1133 1527;
  Add 1577 1577 1386; Add 1550 1550 1638; Sub 1638 1577 1550; Add 1133 1133 1638; Sub 1433 1433 1133;
  Mul 1133 19 1551; Mul 1638 304 1269; Sub 1133 1133 1638; Mul 1638 35 1674; Mul 1386 215 1062;
  Add 1638 1638 1386; Add 1133 1133 1638; Mul 1638 362 1133; Mul 1386 19 1419; Mul 1527 308 1269;
  Sub 1386 1386 1527; Mul 1527 313 1062; Mul 1051 35 1339; Add 1527 1527 1051; Sub 1386 1386 1527;
  Mul 1527 358 1386; Add 1638 1638 1527; Mul 1527 35 1551; Mul 1051 304 1062; Add 1527 1527 1051;
  Mul 1051 19 1674; Mul 1170 215 1269; Sub 1051 1051 1170; Sub 1527 1527 1051; Mul 1051 365 1527;
  Mul 1170 308 1062; Mul 1167 35 1419; Add 1170 1170 1167; Mul 1167 19 1339; Mul 1393 313 1269;
  Sub 1167 1167 1393; Add 1170 1170 1167; Mul 1167 364 1170; Add 1051 1051 1167; Mul 1167 367 1319;
  Sub 1393 1227 1538; Mul 1279 310 1393; Add 1167 1167 1279; Add 1051 1051 1167; Add 1638 1638 1051;
  Mul 1051 213 1638; Mul 1167 385 1051; Mul 1279 19 1255; Mul 1204 315 1269; Sub 1279 1279 1204;
  Mul 1204 368 1279; Mul 1461 35 1255; Mul 1634 315 1062; Add 1461 1461 1634; Mul 1634 39 1461;
  Mul 1230 373 1142; Add 1634 1634 1230; Add 1204 1204 1634; Mul 1634 372 1204; Mul 1230 19 1316;
  Mul 1613 319 1269; Sub 1230 1230 1613; Mul 1613 216 1062; Mul 1459 35 1430; Sub 1613 1613 1459;
  Sub 1230 1230 1613; Mul 1613 370 1230; Add 1634 1634 1613; Mul 1613 39 1279; Mul 1459 376 1461;
  Add 1613 1613 1459; Mul 1459 377 1613; Mul 1179 35 1316; Mul 1108 319 1062; Add 1179 1179 1108;
  Mul 1108 19 1430; Mul 1595 216 1269; Add 1108 1108 1595; Sub 1179 1179 1108].
Definition casadi_f0_729 : list instruction := [
  Mul 1108 375 1179; Add 1459 1459 1108; Add 1634 1634 1459; Mul 1459 69 1527; Add 1634 1634 1459;
  Mul 1459 62 1316; Mul 1108 55 1421; Mul 1595 48 1430; Sub 1108 1108 1595; Add 1459 1459 1108;
  Add 1459 1456 1459; Mul 1108 380 1230; Mul 1595 24 1179; Mul 1358 31 1421; Add 1595 1595 1358;
  Add 1108 1108 1595; Add 1108 1459 1108; Mul 1595 378 1108; Mul 1595 384 1595; Mul 1358 62 1255;
  Mul 1563 55 1142; Add 1358 1358 1563; Add 1358 1462 1358; Mul 1563 380 1279; Mul 1496 24 1461;
  Mul 1548 31 1142; Add 1496 1496 1548; Add 1563 1563 1496; Add 1563 1358 1563; Mul 1496 382 1563;
  Add 1595 1595 1496; Sub 1595 1634 1595; Mul 1496 366 1595; Add 1548 1167 1496; Mul 1166 362 1230;
  Mul 1351 372 1386; Add 1166 1166 1351; Mul 1351 365 1179; Mul 1107 377 1170; Add 1351 1351 1107;
  Mul 1107 367 1421; Mul 1337 327 1393; Add 1107 1107 1337; Add 1351 1351 1107; Add 1166 1166 1351;
  Mul 1351 213 1166; Mul 1107 393 1351; Mul 1337 358 1204; Mul 1489 370 1133; Add 1337 1337 1489;
  Mul 1489 364 1613; Mul 1053 375 1527; Add 1489 1489 1053; Add 1337 1337 1489; Mul 1489 69 1179;
  Sub 1337 1337 1489; Mul 1489 62 1551; Mul 1053 55 1319; Mul 1172 48 1674; Sub 1053 1053 1172;
  Add 1489 1489 1053; Add 1489 1367 1489; Mul 1053 380 1133; Mul 1172 24 1527; Mul 1016 31 1319;
  Add 1172 1172 1016; Add 1053 1053 1172; Add 1053 1489 1053; Mul 1172 378 1053; Mul 1016 384 1172;
  Mul 1224 392 1563; Add 1016 1016 1224; Sub 1016 1337 1016; Mul 1224 388 1016; Add 1267 1107 1224;
  Sub 1493 1548 1267; Mul 1364 401 1563; Mul 1272 397 1279; Mul 1119 48 1227; Mul 1627 55 1339;
  Sub 1119 1119 1627; Sub 1409 1409 1119; Mul 1119 19 1409; Mul 1627 396 1269; Sub 1119 1119 1627;
  Mul 1627 398 1062; Mul 1525 55 1419; Mul 1227 62 1227; Sub 1525 1525 1227; Sub 1512 1512 1525;
  Mul 1525 35 1512; Add 1627 1627 1525; Sub 1119 1119 1627; Mul 1627 369 1119; Add 1272 1272 1627;
  Mul 1627 400 1461; Mul 1525 396 1062; Mul 1409 35 1409; Add 1525 1525 1409; Mul 1512 19 1512;
  Mul 1409 398 1269; Sub 1512 1512 1409; Add 1525 1525 1512; Mul 1512 371 1525; Add 1627 1627 1512;
  Mul 1512 402 1142; Mul 1339 62 1339; Mul 1419 48 1419; Sub 1339 1339 1419; Sub 1236 1236 1339;
  Mul 1339 318 1236; Add 1512 1512 1339; Add 1627 1627 1512; Add 1272 1272 1627; Mul 1627 387 1489;
  Mul 1512 390 1166; Add 1627 1627 1512; Mul 1512 363 1459; Mul 1339 379 1638; Add 1512 1512 1339;
  Sub 1627 1627 1512; Add 1272 1272 1627; Mul 1627 213 1272; Mul 1627 378 1627; Mul 1512 384 1627;
  Add 1339 1364 1512; Mul 1419 397 1133; Mul 1409 358 1119; Add 1419 1419 1409; Mul 1409 400 1527;
  Mul 1227 364 1525; Add 1409 1409 1227; Mul 1227 402 1319; Mul 1233 310 1236; Add 1227 1227 1233;
  Add 1409 1409 1227; Add 1419 1419 1409; Mul 1409 405 1459; Mul 1227 362 1279; Mul 1233 369 1386;
  Add 1227 1227 1233; Mul 1233 365 1461; Mul 1099 371 1170; Add 1233 1233 1099; Mul 1099 367 1142;
  Mul 1558 318 1393; Add 1099 1099 1558; Add 1233 1233 1099; Add 1227 1227 1233].
Definition casadi_f0_730 : list instruction := [
  Mul 1233 379 1227; Add 1409 1409 1233; Mul 1233 387 1358; Mul 1099 383 1166; Add 1233 1233 1099;
  Sub 1409 1409 1233; Add 1419 1419 1409; Mul 1409 213 1419; Mul 1409 378 1409; Mul 1233 391 1409;
  Mul 1099 406 1053; Add 1558 1233 1099; Mul 1451 397 1230; Mul 1679 372 1119; Add 1451 1451 1679;
  Mul 1679 400 1179; Mul 1552 377 1525; Add 1679 1679 1552; Mul 1552 402 1421; Mul 1660 327 1236;
  Add 1552 1552 1660; Add 1679 1679 1552; Add 1451 1451 1679; Mul 1679 363 1358; Mul 1552 383 1638;
  Add 1679 1679 1552; Mul 1552 405 1489; Mul 1660 390 1227; Add 1552 1552 1660; Sub 1679 1679 1552;
  Add 1451 1451 1679; Mul 1679 213 1451; Mul 1679 378 1679; Mul 1552 381 1679; Mul 1660 409 1108;
  Add 1391 1552 1660; Add 1512 1512 1364; Add 1364 1391 1512; Add 1558 1558 1364; Sub 1389 1339 1558;
  Add 1099 1099 1233; Add 1660 1660 1552; Add 1339 1660 1339; Add 1099 1099 1339; Sub 1512 1512 1099;
  Add 1389 1389 1512; Add 1224 1224 1107; Add 1496 1496 1167; Sub 1167 1224 1496; Add 1389 1389 1167;
  Sub 1493 1493 1389; Mul 1389 413 1133; Sub 1167 1386 1309; Mul 1107 358 1167; Add 1389 1389 1107;
  Mul 1107 16 1527; Mul 1512 364 1250; Sub 1107 1107 1512; Mul 1512 15 1319; Mul 1552 310 1026;
  Add 1512 1512 1552; Sub 1107 1107 1512; Mul 1512 419 1107; Mul 1552 16 1170; Mul 1233 365 1250;
  Sub 1552 1552 1233; Mul 1233 367 1026; Mul 1510 15 1393; Add 1233 1233 1510; Sub 1552 1552 1233;
  Mul 1233 418 1552; Add 1512 1512 1233; Mul 1233 15 1527; Mul 1510 364 1026; Add 1233 1233 1510;
  Mul 1510 16 1319; Mul 1097 310 1250; Sub 1510 1510 1097; Add 1233 1233 1510; Mul 1510 422 1233;
  Mul 1097 365 1026; Mul 1642 15 1170; Add 1097 1097 1642; Mul 1642 16 1393; Mul 1567 367 1250;
  Sub 1642 1642 1567; Add 1097 1097 1642; Mul 1642 421 1097; Add 1510 1510 1642; Add 1512 1512 1510;
  Add 1389 1389 1512; Mul 1512 213 1389; Mul 1510 439 1512; Mul 1642 423 1279; Mul 1567 16 1461;
  Mul 1665 371 1250; Sub 1567 1567 1665; Mul 1665 15 1142; Mul 1190 318 1026; Add 1665 1665 1190;
  Sub 1567 1567 1665; Mul 1665 40 1567; Mul 1190 15 1461; Mul 1396 371 1026; Add 1190 1190 1396;
  Mul 1396 16 1142; Mul 1242 318 1250; Sub 1396 1396 1242; Add 1190 1190 1396; Mul 1396 42 1190;
  Add 1665 1665 1396; Add 1642 1642 1665; Mul 1665 372 1642; Mul 1396 424 1230; Add 1665 1665 1396;
  Mul 1396 40 1279; Mul 1242 14 1567; Mul 1186 18 1190; Add 1242 1242 1186; Add 1396 1396 1242;
  Mul 1242 429 1396; Mul 1186 16 1179; Mul 1110 377 1250; Sub 1186 1186 1110; Mul 1110 15 1421;
  Mul 1225 327 1026; Add 1110 1110 1225; Sub 1186 1186 1110; Mul 1110 428 1186; Add 1242 1242 1110;
  Add 1665 1665 1242; Mul 1242 43 1107; Mul 1110 431 1133; Sub 1242 1242 1110; Add 1665 1665 1242;
  Mul 1242 198 1230; Mul 1110 25 1179; Mul 1225 32 1421; Add 1110 1110 1225; Add 1242 1242 1110;
  Add 1242 1459 1242; Mul 1110 433 1230; Mul 1225 26 1186; Mul 1566 15 1179; Mul 1282 377 1026;
  Add 1566 1566 1282; Mul 1282 16 1421; Mul 1402 327 1250; Sub 1282 1282 1402].
Definition casadi_f0_731 : list instruction := [
  Add 1566 1566 1282; Mul 1282 28 1566; Add 1225 1225 1282; Add 1110 1110 1225; Add 1110 1242 1110;
  Mul 1225 430 1110; Mul 1225 438 1225; Mul 1282 198 1279; Mul 1402 25 1461; Mul 1275 32 1142;
  Add 1402 1402 1275; Add 1282 1282 1402; Add 1282 1358 1282; Mul 1402 433 1279; Mul 1275 26 1567;
  Mul 1388 28 1190; Add 1275 1275 1388; Add 1402 1402 1275; Add 1402 1282 1402; Mul 1275 435 1402;
  Add 1225 1225 1275; Sub 1225 1665 1225; Mul 1275 420 1225; Add 1388 1510 1275; Mul 1432 413 1230;
  Mul 1589 372 1167; Add 1432 1432 1589; Mul 1589 419 1186; Mul 1164 429 1552; Add 1589 1589 1164;
  Mul 1164 422 1566; Mul 1692 436 1097; Add 1164 1164 1692; Add 1589 1589 1164; Add 1432 1432 1589;
  Mul 1589 213 1432; Mul 1164 447 1589; Mul 1692 358 1642; Mul 1079 424 1133; Add 1692 1692 1079;
  Mul 1079 418 1396; Mul 1506 428 1107; Add 1079 1079 1506; Add 1692 1692 1079; Mul 1079 43 1186;
  Mul 1506 431 1230; Sub 1079 1079 1506; Sub 1692 1692 1079; Mul 1079 198 1133; Mul 1506 25 1527;
  Mul 1599 32 1319; Add 1506 1506 1599; Add 1079 1079 1506; Add 1079 1489 1079; Mul 1506 433 1133;
  Mul 1599 26 1107; Mul 1124 28 1233; Add 1599 1599 1124; Add 1506 1506 1599; Add 1506 1079 1506;
  Mul 1599 430 1506; Mul 1124 438 1599; Mul 1149 446 1402; Add 1124 1124 1149; Sub 1124 1692 1124;
  Mul 1149 442 1124; Add 1536 1164 1149; Sub 1422 1388 1536; Mul 1261 455 1402; Mul 1234 450 1279;
  Mul 1640 25 1393; Mul 1292 32 1170; Sub 1640 1640 1292; Sub 1119 1119 1640; Mul 1640 369 1119;
  Add 1234 1234 1640; Mul 1640 453 1567; Mul 1292 32 1386; Mul 1393 198 1393; Sub 1292 1292 1393;
  Sub 1525 1525 1292; Mul 1292 16 1525; Mul 1393 452 1250; Sub 1292 1292 1393; Mul 1393 454 1026;
  Mul 1170 198 1170; Mul 1386 25 1386; Sub 1170 1170 1386; Sub 1236 1236 1170; Mul 1170 15 1236;
  Add 1393 1393 1170; Sub 1292 1292 1393; Mul 1393 425 1292; Add 1640 1640 1393; Mul 1393 456 1190;
  Mul 1170 452 1026; Mul 1525 15 1525; Add 1170 1170 1525; Mul 1236 16 1236; Mul 1525 454 1250;
  Sub 1236 1236 1525; Add 1170 1170 1236; Mul 1236 427 1170; Add 1393 1393 1236; Add 1640 1640 1393;
  Add 1234 1234 1640; Mul 1640 441 1079; Mul 1393 444 1432; Add 1640 1640 1393; Mul 1393 417 1242;
  Mul 1236 432 1389; Add 1393 1393 1236; Sub 1640 1640 1393; Add 1234 1234 1640; Mul 1640 213 1234;
  Mul 1640 430 1640; Mul 1393 438 1640; Add 1236 1261 1393; Mul 1525 450 1133; Mul 1386 358 1119;
  Add 1525 1525 1386; Mul 1386 453 1107; Mul 1554 418 1292; Add 1386 1386 1554; Mul 1233 456 1233;
  Mul 1554 421 1170; Add 1233 1233 1554; Add 1386 1386 1233; Add 1525 1525 1386; Mul 1386 459 1242;
  Mul 1233 413 1279; Mul 1167 369 1167; Add 1233 1233 1167; Mul 1167 419 1567; Mul 1552 425 1552;
  Add 1167 1167 1552; Mul 1190 422 1190; Mul 1097 427 1097; Add 1190 1190 1097; Add 1167 1167 1190;
  Add 1233 1233 1167; Mul 1167 432 1233; Add 1386 1386 1167; Mul 1167 441 1282; Mul 1190 437 1432;
  Add 1167 1167 1190; Sub 1386 1386 1167; Add 1525 1525 1386; Mul 1386 213 1525].
Definition casadi_f0_732 : list instruction := [
  Mul 1386 430 1386; Mul 1167 445 1386; Mul 1190 460 1506; Add 1097 1167 1190; Mul 1552 450 1230;
  Mul 1119 372 1119; Add 1552 1552 1119; Mul 1119 453 1186; Mul 1292 429 1292; Add 1119 1119 1292;
  Mul 1292 456 1566; Mul 1170 436 1170; Add 1292 1292 1170; Add 1119 1119 1292; Add 1552 1552 1119;
  Mul 1119 417 1282; Mul 1292 437 1389; Add 1119 1119 1292; Mul 1292 459 1079; Mul 1170 444 1233;
  Add 1292 1292 1170; Sub 1119 1119 1292; Add 1552 1552 1119; Mul 1119 213 1552; Mul 1119 430 1119;
  Mul 1292 434 1119; Mul 1170 463 1110; Add 1554 1292 1170; Add 1393 1393 1261; Add 1261 1554 1393;
  Add 1097 1097 1261; Sub 1111 1236 1097; Add 1190 1190 1167; Add 1170 1170 1292; Add 1236 1170 1236;
  Add 1190 1190 1236; Sub 1393 1393 1190; Add 1111 1111 1393; Add 1149 1149 1164; Add 1275 1275 1510;
  Sub 1510 1149 1275; Add 1111 1111 1510; Sub 1422 1422 1111; Add 1493 1493 1422; Add 1433 1433 1493;
  Add 1463 1463 1433; Add 1127 1127 1463; Mul 1127 0 1127; Mul 1463 235 1651; Add 1127 1127 1463;
  Mul 1257 261 1257; Mul 1463 262 1700; Add 1257 1257 1463; Mul 1132 315 1132; Mul 1463 316 1255;
  Add 1132 1132 1463; Mul 1204 369 1204; Mul 1463 370 1279; Add 1204 1204 1463; Mul 1613 371 1613;
  Mul 1463 375 1461; Add 1613 1613 1463; Add 1204 1204 1613; Mul 1642 369 1642; Mul 1613 424 1279;
  Add 1642 1642 1613; Mul 1396 425 1396; Mul 1613 428 1567; Add 1396 1396 1613; Add 1642 1642 1396;
  Add 1396 1204 1642; Sub 1613 1053 1506; Mul 1463 480 1613; Sub 1433 1108 1110; Mul 1111 1197 1433;
  Add 1510 1463 1111; Mul 1510 20 1510; Add 1396 1396 1510; Add 1510 1132 1396; Mul 1164 485 1053;
  Mul 1393 50 1506; Add 1164 1164 1393; Sub 1393 1661 1164; Mul 1292 487 1393; Mul 1167 485 1108;
  Mul 1441 50 1110; Add 1167 1167 1441; Sub 1441 1105 1167; Mul 1258 1286 1441; Add 1426 1292 1258;
  Mul 1426 37 1426; Add 1510 1510 1426; Add 1426 1257 1510; Mul 1576 493 1661; Mul 1370 83 1164;
  Add 1576 1576 1370; Sub 1370 1392 1576; Mul 1436 495 1370; Mul 1343 493 1105; Mul 1480 83 1167;
  Add 1343 1343 1480; Sub 1480 1198 1343; Mul 1585 1294 1480; Add 1503 1436 1585; Mul 1503 80 1503;
  Add 1426 1426 1503; Mul 1503 237 1533; Mul 1423 113 1423; Sub 1503 1503 1423; Sub 1423 1426 1503;
  Mul 1655 501 1198; Mul 1154 104 1343; Add 1655 1655 1154; Sub 1154 1470 1655; Mul 1620 1299 1154;
  Mul 1556 501 1392; Mul 1239 104 1576; Add 1556 1556 1239; Add 1239 1434 1556; Mul 1145 503 1239;
  Sub 1549 1620 1145; Mul 1549 100 1549; Add 1423 1423 1549; Mul 1423 508 1423; Mul 1549 216 1597;
  Mul 1526 219 1430; Sub 1549 1549 1526; Mul 1526 215 1690; Mul 1277 227 1674; Add 1526 1526 1277;
  Add 1549 1549 1526; Mul 1526 500 1549; Add 1423 1423 1526; Add 1526 1337 1692; Mul 1613 20 1613;
  Mul 1277 512 1613; Sub 1075 1563 1402; Mul 1698 511 1075; Add 1277 1277 1698; Sub 1526 1526 1277;
  Add 1277 1645 1526; Mul 1393 37 1393; Mul 1698 516 1393; Mul 1109 485 1563; Mul 1515 50 1402;
  Add 1109 1109 1515; Sub 1515 1327 1109; Mul 1137 514 1515; Add 1698 1698 1137].
Definition casadi_f0_733 : list instruction := [
  Sub 1277 1277 1698; Add 1698 1263 1277; Mul 1370 80 1370; Mul 1137 520 1370; Mul 1413 493 1327;
  Mul 1017 83 1109; Add 1413 1413 1017; Sub 1017 1442 1413; Mul 1174 518 1017; Add 1137 1137 1174;
  Sub 1698 1698 1137; Add 1137 1333 1698; Mul 1239 100 1239; Mul 1174 524 1239; Mul 1347 501 1442;
  Mul 1542 104 1413; Add 1347 1347 1542; Add 1542 1474 1347; Mul 1355 522 1542; Add 1174 1174 1355;
  Add 1137 1137 1174; Mul 1174 526 1137; Mul 1355 221 1533; Mul 1335 113 1335; Add 1355 1355 1335;
  Mul 1091 114 1091; Mul 1335 218 1361; Sub 1091 1091 1335; Add 1355 1355 1091; Mul 1091 216 1355;
  Mul 1335 525 1430; Sub 1091 1091 1335; Mul 1335 521 1091; Add 1174 1174 1335; Add 1335 1634 1665;
  Mul 1278 20 1433; Mul 1278 512 1278; Mul 1524 529 1075; Add 1278 1278 1524; Sub 1335 1335 1278;
  Add 1278 1458 1335; Mul 1524 37 1441; Mul 1524 516 1524; Mul 1648 531 1515; Add 1524 1524 1648;
  Sub 1278 1278 1524; Add 1524 1098 1278; Mul 1648 80 1480; Mul 1648 520 1648; Mul 1452 533 1017;
  Add 1648 1648 1452; Sub 1524 1524 1648; Add 1648 1090 1524; Mul 1452 100 1154; Mul 1452 524 1452;
  Mul 1223 535 1542; Sub 1452 1452 1223; Sub 1648 1648 1452; Mul 1452 536 1648; Mul 1223 215 1355;
  Mul 1460 525 1674; Add 1223 1223 1460; Mul 1460 534 1223; Add 1452 1452 1460; Add 1174 1174 1452;
  Sub 1423 1423 1174; Mul 1174 120 1556; Mul 1452 527 1434; Sub 1174 1174 1452; Mul 1452 539 1174;
  Mul 1460 120 1347; Mul 1697 527 1474; Sub 1460 1460 1697; Mul 1697 526 1460; Mul 1300 538 1091;
  Add 1697 1697 1300; Mul 1300 508 1174; Mul 1654 537 1549; Add 1300 1300 1654; Add 1697 1697 1300;
  Mul 1300 540 1355; Mul 1654 214 1430; Mul 1112 525 1654; Sub 1300 1300 1112; Sub 1697 1697 1300;
  Mul 1697 141 1697; Mul 1112 537 1697; Add 1452 1452 1112; Mul 1112 527 1470; Mul 1583 120 1655;
  Add 1112 1112 1583; Mul 1583 546 1112; Mul 1018 544 1355; Mul 1083 214 1674; Mul 1703 525 1083;
  Add 1018 1018 1703; Mul 1703 508 1112; Mul 1706 543 1549; Add 1703 1703 1706; Mul 1706 536 1460;
  Mul 1587 538 1223; Add 1706 1706 1587; Add 1703 1703 1706; Sub 1703 1018 1703; Mul 1703 141 1703;
  Mul 1706 543 1703; Add 1583 1583 1706; Sub 1452 1452 1583; Add 1423 1423 1452; Mul 1452 553 1658;
  Mul 1583 238 1101; Mul 1546 236 1546; Mul 1706 144 1430; Sub 1546 1546 1706; Add 1583 1583 1546;
  Mul 1546 224 1583; Mul 1706 542 1101; Add 1546 1546 1706; Mul 1101 144 1101; Mul 1706 549 1430;
  Sub 1101 1101 1706; Mul 1706 216 1101; Mul 1587 548 1430; Sub 1706 1706 1587; Add 1546 1546 1706;
  Mul 1706 1334 1434; Mul 1587 1336 1474; Add 1268 1706 1587; Mul 1268 212 1268; Sub 1268 1546 1268;
  Mul 1418 249 1268; Add 1631 1452 1418; Mul 1382 556 1168; Mul 1583 220 1583; Mul 1685 542 1685;
  Sub 1583 1583 1685; Mul 1101 215 1101; Mul 1685 548 1674; Add 1101 1101 1685; Sub 1583 1583 1101;
  Mul 1101 241 1470; Mul 1501 225 1501; Sub 1101 1101 1501; Sub 1101 1583 1101; Mul 1501 244 1101;
  Add 1685 1382 1501; Sub 1631 1631 1685; Mul 1685 242 1368; Mul 1088 223 1474].
Definition casadi_f0_734 : list instruction := [
  Sub 1685 1685 1088; Mul 1088 1342 1470; Sub 1706 1088 1706; Mul 1706 212 1706; Sub 1706 1706 1503;
  Mul 1238 249 1706; Mul 1129 551 1658; Add 1024 1238 1129; Mul 1171 560 1407; Mul 1502 213 1355;
  Mul 1582 243 1502; Add 1560 1171 1582; Sub 1024 1024 1560; Add 1024 1685 1024; Sub 1631 1631 1024;
  Sub 1024 1503 1546; Mul 1560 219 1024; Mul 1468 557 1597; Add 1560 1560 1468; Mul 1468 227 1583;
  Mul 1247 555 1690; Add 1468 1468 1247; Add 1560 1560 1468; Mul 1468 525 1333; Mul 1247 239 1355;
  Add 1468 1468 1247; Add 1560 1560 1468; Mul 1468 340 1470; Mul 1247 231 1690; Mul 1231 227 1434;
  Sub 1247 1247 1231; Mul 1231 219 1470; Mul 1256 225 1597; Add 1231 1231 1256; Sub 1247 1247 1231;
  Mul 1247 212 1247; Mul 1231 225 1247; Add 1468 1468 1231; Mul 1231 242 1597; Mul 1256 219 1474;
  Sub 1231 1231 1256; Mul 1256 231 1355; Mul 1162 525 1434; Sub 1256 1256 1162; Sub 1231 1231 1256;
  Sub 1231 1081 1231; Mul 1231 212 1231; Mul 1256 242 1231; Mul 1162 559 1474; Sub 1256 1256 1162;
  Add 1468 1468 1256; Sub 1560 1560 1468; Mul 1560 213 1560; Sub 1631 1631 1560; Mul 1468 567 1191;
  Mul 1256 260 1106; Mul 1162 263 1497; Mul 1448 127 1430; Sub 1162 1162 1448; Add 1256 1256 1162;
  Mul 1162 265 1256; Mul 1448 547 1106; Add 1162 1162 1448; Mul 1106 127 1106; Mul 1497 268 1497;
  Mul 1448 563 1430; Sub 1497 1497 1448; Add 1106 1106 1497; Mul 1497 216 1106; Mul 1448 562 1430;
  Sub 1497 1497 1448; Add 1162 1162 1497; Mul 1497 1138 1392; Mul 1448 1357 1442; Add 1177 1497 1448;
  Mul 1177 269 1177; Add 1177 1162 1177; Mul 1274 258 1177; Add 1104 1468 1274; Mul 1652 570 1369;
  Mul 1256 253 1256; Mul 1476 547 1476; Add 1256 1256 1476; Mul 1106 215 1106; Mul 1476 562 1674;
  Add 1106 1106 1476; Sub 1256 1256 1106; Mul 1700 135 1700; Sub 1256 1256 1700; Mul 1606 271 1606;
  Mul 1700 283 1198; Add 1606 1606 1700; Sub 1606 1256 1606; Mul 1700 279 1606; Add 1106 1652 1700;
  Sub 1104 1104 1106; Mul 1106 300 1442; Mul 1476 275 1157; Add 1270 1106 1476; Mul 1302 271 1289;
  Mul 1399 292 1198; Add 1147 1302 1399; Add 1270 1270 1147; Mul 1147 1366 1198; Add 1497 1497 1147;
  Mul 1497 269 1497; Add 1497 1257 1497; Mul 1082 258 1497; Mul 1341 565 1191; Add 1211 1082 1341;
  Mul 1152 574 1575; Mul 1318 213 1653; Mul 1060 284 1318; Add 1094 1152 1060; Sub 1211 1211 1094;
  Add 1270 1270 1211; Sub 1104 1104 1270; Mul 1270 571 1488; Add 1211 1162 1257; Mul 1094 255 1211;
  Sub 1270 1270 1094; Mul 1094 278 1256; Mul 1086 569 1022; Add 1094 1094 1086; Add 1270 1270 1094;
  Mul 1094 296 1263; Mul 1086 280 1653; Add 1094 1094 1086; Add 1270 1270 1094; Mul 1094 471 1198;
  Mul 1086 278 1392; Mul 1324 282 1022; Add 1086 1086 1324; Mul 1324 255 1198; Mul 1694 271 1488;
  Add 1324 1324 1694; Sub 1086 1086 1324; Sub 1086 1564 1086; Mul 1086 269 1086; Mul 1324 271 1086;
  Add 1094 1094 1324; Mul 1324 573 1442; Mul 1694 255 1442; Mul 1568 275 1488; Add 1694 1694 1568;
  Mul 1568 296 1392; Mul 1199 282 1653; Add 1568 1568 1199; Sub 1694 1694 1568].
Definition casadi_f0_735 : list instruction := [
  Sub 1694 1557 1694; Mul 1694 269 1694; Mul 1568 275 1694; Add 1324 1324 1568; Sub 1094 1094 1324;
  Add 1270 1270 1094; Mul 1270 213 1270; Sub 1104 1104 1270; Mul 1094 581 1354; Mul 1324 314 1316;
  Mul 1568 317 1421; Mul 1199 128 1430; Sub 1568 1568 1199; Add 1324 1324 1568; Mul 1568 319 1324;
  Mul 1199 561 1316; Add 1568 1568 1199; Mul 1316 128 1316; Mul 1199 322 1421; Mul 1610 577 1430;
  Sub 1199 1199 1610; Add 1316 1316 1199; Mul 1199 216 1316; Mul 1610 576 1430; Sub 1199 1199 1610;
  Add 1568 1568 1199; Mul 1199 1379 1661; Mul 1610 1381 1327; Add 1465 1199 1610; Mul 1465 323 1465;
  Add 1465 1568 1465; Mul 1161 312 1465; Add 1701 1094 1161; Mul 1622 584 1151; Mul 1324 304 1324;
  Mul 1551 561 1551; Add 1324 1324 1551; Mul 1316 215 1316; Mul 1551 576 1674; Add 1316 1316 1551;
  Sub 1324 1324 1316; Mul 1255 131 1255; Sub 1324 1324 1255; Mul 1467 325 1467; Mul 1255 337 1105;
  Add 1467 1467 1255; Sub 1467 1324 1467; Mul 1255 333 1467; Add 1316 1622 1255; Sub 1701 1701 1316;
  Mul 1316 354 1327; Mul 1551 329 1037; Add 1146 1316 1551; Mul 1529 325 1646; Mul 1283 346 1105;
  Add 1545 1529 1283; Add 1146 1146 1545; Mul 1545 1390 1105; Add 1199 1199 1545; Mul 1199 323 1199;
  Add 1199 1132 1199; Mul 1609 312 1199; Mul 1252 579 1354; Add 1215 1609 1252; Mul 1144 588 1572;
  Mul 1181 213 1169; Mul 1695 338 1181; Add 1317 1144 1695; Sub 1215 1215 1317; Add 1146 1146 1215;
  Sub 1701 1701 1146; Mul 1146 585 1248; Add 1215 1568 1132; Mul 1317 309 1215; Sub 1146 1146 1317;
  Mul 1317 332 1324; Mul 1547 583 1424; Add 1317 1317 1547; Add 1146 1146 1317; Mul 1317 349 1645;
  Mul 1547 334 1169; Add 1317 1317 1547; Add 1146 1146 1317; Mul 1317 473 1105; Mul 1547 332 1661;
  Mul 1139 336 1424; Add 1547 1547 1139; Mul 1139 309 1105; Mul 1271 325 1248; Add 1139 1139 1271;
  Sub 1547 1547 1139; Sub 1547 1617 1547; Mul 1547 323 1547; Mul 1139 325 1547; Add 1317 1317 1139;
  Mul 1139 587 1327; Mul 1271 309 1327; Mul 1691 329 1248; Add 1271 1271 1691; Mul 1691 349 1661;
  Mul 1281 336 1169; Add 1691 1691 1281; Sub 1271 1271 1691; Sub 1271 1034 1271; Mul 1271 323 1271;
  Mul 1691 329 1271; Add 1139 1139 1691; Sub 1317 1317 1139; Add 1146 1146 1317; Mul 1146 213 1146;
  Sub 1701 1701 1146; Mul 1317 594 1051; Mul 1139 368 1230; Mul 1691 39 1179; Mul 1281 373 1421;
  Add 1691 1691 1281; Add 1139 1139 1691; Mul 1691 372 1139; Mul 1281 575 1230; Add 1691 1691 1281;
  Mul 1281 39 1230; Mul 1216 376 1179; Add 1281 1281 1216; Mul 1216 377 1281; Mul 1179 590 1179;
  Add 1216 1216 1179; Add 1691 1691 1216; Mul 1216 1404 1053; Mul 1179 1405 1563; Add 1103 1216 1179;
  Mul 1103 378 1103; Add 1103 1691 1103; Mul 1659 366 1103; Add 1469 1317 1659; Mul 1125 597 1351;
  Mul 1139 358 1139; Mul 1644 575 1133; Add 1139 1139 1644; Mul 1281 364 1281; Mul 1527 590 1527;
  Add 1281 1281 1527; Add 1139 1139 1281; Mul 1461 69 1461; Add 1139 1139 1461; Mul 1172 381 1172;
  Mul 1461 392 1108; Add 1172 1172 1461; Sub 1172 1139 1172; Mul 1461 388 1172].
Definition casadi_f0_736 : list instruction := [
  Add 1281 1125 1461; Sub 1469 1469 1281; Mul 1281 409 1563; Mul 1527 384 1679; Add 1644 1281 1527;
  Mul 1425 381 1627; Mul 1699 401 1108; Add 1511 1425 1699; Add 1644 1644 1511; Mul 1511 1414 1108;
  Add 1216 1216 1511; Mul 1216 378 1216; Add 1216 1204 1216; Mul 1141 366 1216; Mul 1240 592 1051;
  Add 1311 1141 1240; Mul 1471 601 1016; Mul 1687 213 1227; Mul 1429 393 1687; Add 1163 1471 1429;
  Sub 1311 1311 1163; Add 1644 1644 1311; Sub 1469 1469 1644; Mul 1644 598 1638; Add 1311 1691 1204;
  Mul 1163 363 1311; Sub 1644 1644 1163; Mul 1163 387 1139; Mul 1539 596 1166; Add 1163 1163 1539;
  Add 1644 1644 1163; Mul 1163 405 1337; Mul 1539 389 1227; Add 1163 1163 1539; Add 1644 1644 1163;
  Mul 1163 475 1108; Mul 1539 387 1053; Mul 1193 391 1166; Add 1539 1539 1193; Mul 1193 363 1108;
  Mul 1313 381 1638; Add 1193 1193 1313; Sub 1539 1539 1193; Sub 1539 1272 1539; Mul 1539 378 1539;
  Mul 1193 381 1539; Add 1163 1163 1193; Mul 1193 600 1563; Mul 1313 363 1563; Mul 1315 384 1638;
  Add 1313 1313 1315; Mul 1315 405 1053; Mul 1598 391 1227; Add 1315 1315 1598; Sub 1313 1313 1315;
  Sub 1313 1451 1313; Mul 1313 378 1313; Mul 1315 384 1313; Add 1193 1193 1315; Sub 1163 1163 1193;
  Add 1644 1644 1163; Mul 1644 213 1644; Sub 1469 1469 1644; Mul 1163 607 1512; Mul 1193 423 1230;
  Mul 1315 40 1186; Mul 1598 42 1566; Add 1315 1315 1598; Add 1193 1193 1315; Mul 1315 372 1193;
  Mul 1598 589 1230; Add 1315 1315 1598; Mul 1598 40 1230; Mul 1684 14 1186; Mul 1566 18 1566;
  Add 1684 1684 1566; Add 1598 1598 1684; Mul 1684 429 1598; Mul 1186 603 1186; Add 1684 1684 1186;
  Add 1315 1315 1684; Mul 1684 1428 1506; Mul 1186 1264 1402; Add 1566 1684 1186; Mul 1566 430 1566;
  Add 1566 1315 1566; Mul 1394 420 1566; Add 1671 1163 1394; Mul 1668 610 1589; Mul 1193 358 1193;
  Mul 1683 589 1133; Add 1193 1193 1683; Mul 1598 418 1598; Mul 1107 603 1107; Add 1598 1598 1107;
  Add 1193 1193 1598; Mul 1567 43 1567; Mul 1598 431 1279; Sub 1567 1567 1598; Add 1193 1193 1567;
  Mul 1599 434 1599; Mul 1567 446 1110; Add 1599 1599 1567; Sub 1599 1193 1599; Mul 1567 442 1599;
  Add 1598 1668 1567; Sub 1671 1671 1598; Mul 1598 463 1402; Mul 1107 438 1119; Add 1683 1598 1107;
  Mul 1253 434 1640; Mul 1403 455 1110; Add 1571 1253 1403; Add 1683 1683 1571; Mul 1571 1437 1110;
  Add 1684 1684 1571; Mul 1684 430 1684; Add 1684 1642 1684; Mul 1663 420 1684; Mul 1158 605 1512;
  Add 1376 1663 1158; Mul 1226 614 1124; Mul 1479 213 1233; Mul 1664 447 1479; Add 1643 1226 1664;
  Sub 1376 1376 1643; Add 1683 1683 1376; Sub 1671 1671 1683; Mul 1683 13 1389; Add 1376 1315 1642;
  Mul 1643 417 1376; Sub 1683 1683 1643; Mul 1643 441 1193; Mul 1209 609 1432; Add 1643 1643 1209;
  Add 1683 1683 1643; Mul 1643 459 1692; Mul 1209 443 1233; Add 1643 1643 1209; Add 1683 1683 1643;
  Mul 1643 477 1110; Mul 1209 441 1506; Mul 1122 445 1432; Add 1209 1209 1122; Mul 1122 417 1110;
  Mul 1074 434 1389; Add 1122 1122 1074; Sub 1209 1209 1122; Sub 1209 1234 1209].
Definition casadi_f0_737 : list instruction := [
  Mul 1209 430 1209; Mul 1122 434 1209; Add 1643 1643 1122; Mul 1122 611 1402; Mul 1074 417 1402;
  Mul 1118 438 1389; Add 1074 1074 1118; Mul 1118 459 1506; Mul 1528 445 1233; Add 1118 1118 1528;
  Sub 1074 1074 1118; Sub 1074 1552 1074; Mul 1074 430 1074; Mul 1118 438 1074; Add 1122 1122 1118;
  Sub 1643 1643 1122; Add 1683 1683 1643; Mul 1683 213 1683; Sub 1671 1671 1683; Add 1469 1469 1671;
  Add 1701 1701 1469; Add 1104 1104 1701; Add 1631 1631 1104; Mul 1631 216 1631; Mul 1643 554 1430;
  Sub 1631 1631 1643; Mul 1643 242 1675; Mul 1122 230 1474; Sub 1643 1643 1122; Mul 1122 560 1048;
  Mul 1118 248 1502; Add 1528 1122 1118; Mul 1706 244 1706; Mul 1383 551 1168; Add 1087 1706 1383;
  Sub 1528 1528 1087; Sub 1528 1643 1528; Mul 1087 556 1658; Mul 1495 249 1101; Add 1130 1087 1495;
  Mul 1340 558 1168; Sub 1088 1088 1587; Mul 1088 212 1088; Add 1088 1024 1088; Mul 1587 244 1088;
  Add 1038 1340 1587; Sub 1130 1130 1038; Add 1528 1528 1130; Mul 1130 219 1583; Mul 1038 555 1597;
  Add 1130 1130 1038; Mul 1038 227 1546; Mul 1338 550 1690; Add 1038 1038 1338; Add 1130 1130 1038;
  Mul 1038 525 1090; Mul 1338 246 1355; Add 1038 1038 1338; Add 1130 1130 1038; Mul 1038 231 1247;
  Mul 1338 340 1434; Sub 1038 1038 1338; Mul 1338 525 1470; Mul 1604 225 1355; Add 1338 1338 1604;
  Mul 1604 242 1690; Mul 1410 227 1474; Sub 1604 1604 1410; Sub 1338 1338 1604; Add 1338 1439 1338;
  Mul 1338 212 1338; Mul 1604 242 1338; Mul 1410 616 1474; Sub 1604 1604 1410; Sub 1038 1038 1604;
  Add 1130 1130 1038; Mul 1130 213 1130; Add 1528 1528 1130; Mul 1038 570 1191; Mul 1604 258 1606;
  Add 1410 1038 1604; Mul 1077 572 1369; Add 1147 1147 1448; Mul 1147 269 1147; Sub 1147 1147 1211;
  Mul 1448 279 1147; Add 1586 1077 1448; Sub 1410 1410 1586; Mul 1586 297 1442; Mul 1312 275 1573;
  Add 1517 1586 1312; Mul 1175 282 1289; Mul 1580 292 1392; Add 1593 1175 1580; Add 1517 1517 1593;
  Mul 1593 574 1520; Mul 1513 276 1318; Add 1360 1593 1513; Mul 1497 279 1497; Mul 1246 565 1369;
  Add 1251 1497 1246; Sub 1360 1360 1251; Add 1517 1517 1360; Sub 1410 1410 1517; Mul 1517 255 1256;
  Mul 1360 569 1488; Add 1517 1517 1360; Mul 1360 278 1162; Mul 1251 564 1022; Add 1360 1360 1251;
  Add 1517 1517 1360; Mul 1360 296 1098; Mul 1251 266 1653; Add 1360 1360 1251; Add 1517 1517 1360;
  Mul 1360 617 1442; Mul 1251 296 1198; Mul 1084 271 1653; Add 1251 1251 1084; Mul 1084 278 1442;
  Mul 1494 275 1022; Add 1084 1084 1494; Sub 1251 1251 1084; Sub 1251 1325 1251; Mul 1251 269 1251;
  Mul 1084 275 1251; Add 1360 1360 1084; Mul 1084 471 1392; Mul 1494 282 1086; Add 1084 1084 1494;
  Sub 1360 1360 1084; Add 1517 1517 1360; Mul 1517 213 1517; Add 1410 1410 1517; Mul 1360 584 1354;
  Mul 1084 312 1467; Add 1494 1360 1084; Mul 1265 586 1151; Add 1545 1545 1610; Mul 1545 323 1545;
  Sub 1545 1545 1215; Mul 1610 333 1545; Add 1047 1265 1610; Sub 1494 1494 1047; Mul 1047 351 1327;
  Mul 1415 329 1500; Add 1188 1047 1415; Mul 1148 336 1646; Mul 1326 346 1661].
Definition casadi_f0_738 : list instruction := [
  Add 1581 1148 1326; Add 1188 1188 1581; Mul 1581 588 1523; Mul 1285 330 1181; Add 1559 1581 1285;
  Mul 1199 333 1199; Mul 1641 579 1151; Add 1310 1199 1641; Sub 1559 1559 1310; Add 1188 1188 1559;
  Sub 1494 1494 1188; Mul 1188 309 1324; Mul 1559 583 1248; Add 1188 1188 1559; Mul 1559 332 1568;
  Mul 1310 578 1424; Add 1559 1559 1310; Add 1188 1188 1559; Mul 1559 349 1458; Mul 1310 320 1169;
  Add 1559 1559 1310; Add 1188 1188 1559; Mul 1559 619 1327; Mul 1310 349 1105; Mul 1218 325 1169;
  Add 1310 1310 1218; Mul 1218 332 1327; Mul 1507 329 1424; Add 1218 1218 1507; Sub 1310 1310 1218;
  Sub 1310 1126 1310; Mul 1310 323 1310; Mul 1218 329 1310; Add 1559 1559 1218; Mul 1218 473 1661;
  Mul 1507 336 1547; Add 1218 1218 1507; Sub 1559 1559 1218; Add 1188 1188 1559; Mul 1188 213 1188;
  Add 1494 1494 1188; Mul 1559 597 1051; Mul 1218 366 1172; Add 1507 1559 1218; Mul 1535 599 1351;
  Add 1511 1511 1179; Mul 1511 378 1511; Sub 1511 1511 1311; Mul 1179 388 1511; Add 1454 1535 1179;
  Sub 1507 1507 1454; Mul 1454 406 1563; Mul 1453 384 1409; Add 1243 1454 1453; Mul 1693 391 1627;
  Mul 1481 401 1053; Add 1401 1693 1481; Add 1243 1243 1401; Mul 1401 601 1595; Mul 1594 385 1687;
  Add 1584 1401 1594; Mul 1216 388 1216; Mul 1113 592 1351; Add 1682 1216 1113; Sub 1584 1584 1682;
  Add 1243 1243 1584; Sub 1507 1507 1243; Mul 1243 363 1139; Mul 1584 596 1638; Add 1243 1243 1584;
  Mul 1584 387 1691; Mul 1682 591 1166; Add 1584 1584 1682; Add 1243 1243 1584; Mul 1584 405 1634;
  Mul 1682 374 1227; Add 1584 1584 1682; Add 1243 1243 1584; Mul 1584 621 1563; Mul 1682 405 1108;
  Mul 1672 381 1227; Add 1682 1682 1672; Mul 1672 387 1563; Mul 1667 384 1166; Add 1672 1672 1667;
  Sub 1682 1682 1672; Sub 1682 1419 1682; Mul 1682 378 1682; Mul 1672 384 1682; Add 1584 1584 1672;
  Mul 1672 475 1053; Mul 1667 391 1539; Add 1672 1672 1667; Sub 1584 1584 1672; Add 1243 1243 1584;
  Mul 1243 213 1243; Add 1507 1507 1243; Mul 1584 610 1512; Mul 1672 420 1599; Add 1667 1584 1672;
  Mul 1116 612 1589; Add 1571 1571 1186; Mul 1571 430 1571; Sub 1571 1571 1376; Mul 1186 442 1571;
  Add 1649 1116 1186; Sub 1667 1667 1649; Mul 1649 460 1402; Mul 1114 438 1386; Add 1590 1649 1114;
  Mul 1676 445 1640; Mul 1217 455 1506; Add 1032 1676 1217; Add 1590 1590 1032; Mul 1032 614 1225;
  Mul 1323 439 1479; Add 1540 1032 1323; Mul 1684 442 1684; Mul 1475 605 1589; Add 1150 1684 1475;
  Sub 1540 1540 1150; Add 1590 1590 1540; Sub 1667 1667 1590; Mul 1590 417 1193; Mul 1540 609 1389;
  Add 1590 1590 1540; Mul 1540 441 1315; Mul 1150 604 1432; Add 1540 1540 1150; Add 1590 1590 1540;
  Mul 1540 459 1665; Mul 1150 426 1233; Add 1540 1540 1150; Add 1590 1590 1540; Mul 1540 623 1402;
  Mul 1150 459 1110; Mul 1607 434 1233; Add 1150 1150 1607; Mul 1607 441 1402; Mul 1696 438 1432;
  Add 1607 1607 1696; Sub 1150 1150 1607; Sub 1150 1525 1150; Mul 1150 430 1150; Mul 1607 438 1150;
  Add 1540 1540 1607; Mul 1607 477 1506; Mul 1696 445 1209; Add 1607 1607 1696].
Definition casadi_f0_739 : list instruction := [
  Sub 1540 1540 1607; Add 1590 1590 1540; Mul 1590 213 1590; Add 1667 1667 1590; Add 1507 1507 1667;
  Add 1494 1494 1507; Add 1410 1410 1494; Add 1528 1528 1410; Mul 1528 215 1528; Mul 1540 613 1674;
  Add 1528 1528 1540; Sub 1631 1631 1528; Mul 1528 212 1658; Mul 1540 242 1528; Mul 1607 624 1474;
  Sub 1540 1540 1607; Mul 1607 212 1502; Mul 1696 231 1607; Mul 1602 626 1434; Sub 1696 1696 1602;
  Add 1696 1368 1696; Sub 1540 1540 1696; Mul 1696 213 1231; Add 1602 1540 1696; Mul 1213 269 1191;
  Mul 1308 275 1213; Mul 1400 629 1442; Add 1445 1308 1400; Mul 1176 631 1392; Mul 1420 269 1318;
  Mul 1173 282 1420; Add 1350 1176 1173; Add 1350 1157 1350; Sub 1445 1445 1350; Mul 1350 213 1694;
  Add 1374 1445 1350; Mul 1628 323 1354; Mul 1412 329 1628; Mul 1134 634 1327; Add 1574 1412 1134;
  Mul 1483 636 1661; Mul 1562 323 1181; Mul 1297 336 1562; Add 1657 1483 1297; Add 1657 1037 1657;
  Sub 1574 1574 1657; Mul 1657 213 1271; Add 1406 1574 1657; Mul 1055 378 1051; Mul 1656 384 1055;
  Mul 1673 639 1563; Add 1509 1656 1673; Mul 1457 641 1053; Mul 1378 378 1687; Mul 1156 391 1378;
  Add 1688 1457 1156; Add 1688 1679 1688; Sub 1509 1509 1688; Mul 1688 213 1313; Add 1140 1509 1688;
  Mul 1320 430 1512; Mul 1482 438 1320; Mul 1633 644 1402; Add 1135 1482 1633; Mul 1187 646 1506;
  Mul 1579 430 1479; Mul 1102 445 1579; Add 1484 1187 1102; Add 1484 1119 1484; Sub 1135 1135 1484;
  Mul 1484 213 1074; Add 1123 1135 1484; Add 1140 1140 1123; Add 1406 1406 1140; Add 1374 1374 1406;
  Add 1602 1602 1374; Mul 1602 540 1602; Mul 1096 628 1654; Sub 1602 1602 1096; Mul 1096 212 1168;
  Mul 1632 242 1096; Mul 1205 650 1474; Sub 1632 1632 1205; Mul 1205 626 1470; Mul 1203 225 1607;
  Add 1205 1205 1203; Add 1205 1675 1205; Sub 1632 1632 1205; Mul 1205 213 1338; Add 1203 1632 1205;
  Mul 1042 631 1198; Mul 1455 271 1420; Add 1680 1042 1455; Sub 1680 1573 1680; Mul 1444 269 1369;
  Mul 1200 275 1444; Mul 1677 655 1442; Add 1486 1200 1677; Add 1680 1680 1486; Mul 1486 213 1251;
  Sub 1565 1680 1486; Mul 1330 636 1105; Mul 1165 325 1562; Add 1466 1330 1165; Sub 1466 1500 1466;
  Mul 1555 323 1151; Mul 1206 329 1555; Mul 1647 659 1327; Add 1030 1206 1647; Add 1466 1466 1030;
  Mul 1030 213 1310; Sub 1362 1466 1030; Mul 1021 641 1108; Mul 1380 381 1378; Add 1608 1021 1380;
  Sub 1608 1409 1608; Mul 1537 378 1351; Mul 1689 384 1537; Mul 1450 663 1563; Add 1431 1689 1450;
  Add 1608 1608 1431; Mul 1431 213 1682; Sub 1244 1608 1431; Mul 1295 646 1110; Mul 1219 434 1579;
  Add 1588 1295 1219; Sub 1588 1386 1588; Mul 1093 430 1589; Mul 1440 438 1093; Mul 1189 667 1402;
  Add 1522 1440 1189; Add 1588 1588 1522; Mul 1522 213 1150; Sub 1611 1588 1522; Add 1244 1244 1611;
  Add 1362 1362 1244; Add 1565 1565 1362; Add 1203 1203 1565; Mul 1203 544 1203; Mul 1228 653 1083;
  Add 1203 1203 1228; Add 1602 1602 1203; Sub 1631 1631 1602; Add 1423 1423 1631; Mul 1423 1 1423;
  Mul 1631 509 1492; Add 1423 1423 1631; Add 1127 1127 1423; Mul 1423 602 1698].
Definition casadi_f0_740 : list instruction := [
  Mul 1631 216 1653; Mul 1602 296 1430; Sub 1631 1631 1602; Mul 1602 517 1631; Add 1423 1423 1602;
  Mul 1602 670 1524; Mul 1203 215 1653; Mul 1228 296 1674; Add 1203 1203 1228; Mul 1228 532 1203;
  Add 1602 1602 1228; Add 1423 1423 1602; Mul 1426 671 1426; Mul 1602 216 1488; Mul 1228 255 1430;
  Sub 1602 1602 1228; Mul 1228 215 1022; Mul 1194 278 1674; Add 1228 1228 1194; Add 1602 1602 1228;
  Mul 1228 492 1602; Add 1426 1426 1228; Sub 1423 1423 1426; Mul 1426 675 1556; Mul 1228 215 1564;
  Mul 1194 290 1674; Add 1228 1228 1194; Mul 1194 674 1653; Mul 1384 216 1241; Mul 1196 274 1430;
  Add 1384 1384 1196; Mul 1196 296 1384; Sub 1194 1194 1196; Mul 1196 676 1488; Mul 1121 215 1121;
  Mul 1235 270 1674; Add 1121 1121 1235; Mul 1541 216 1541; Mul 1235 281 1430; Add 1541 1541 1235;
  Sub 1121 1121 1541; Mul 1541 255 1121; Add 1196 1196 1541; Add 1194 1194 1196; Add 1228 1228 1194;
  Mul 1194 602 1347; Mul 1196 523 1631; Add 1194 1194 1196; Mul 1196 671 1556; Mul 1541 502 1602;
  Add 1196 1196 1541; Add 1194 1194 1196; Sub 1194 1228 1194; Mul 1194 672 1194; Mul 1196 502 1194;
  Add 1426 1426 1196; Mul 1196 679 1655; Mul 1564 216 1564; Mul 1541 290 1430; Sub 1564 1564 1541;
  Mul 1541 676 1022; Mul 1235 278 1121; Add 1541 1541 1235; Mul 1235 680 1653; Mul 1487 274 1674;
  Mul 1241 215 1241; Sub 1487 1487 1241; Mul 1241 296 1487; Add 1235 1235 1241; Add 1541 1541 1235;
  Sub 1564 1564 1541; Mul 1541 671 1655; Mul 1235 505 1602; Add 1541 1541 1235; Mul 1235 670 1347;
  Mul 1241 523 1203; Add 1235 1235 1241; Add 1541 1541 1235; Add 1541 1564 1541; Mul 1541 672 1541;
  Mul 1235 505 1541; Add 1196 1196 1235; Sub 1426 1426 1196; Add 1423 1423 1426; Mul 1374 674 1374;
  Mul 1426 633 1384; Sub 1374 1374 1426; Mul 1565 680 1565; Mul 1426 657 1487; Add 1565 1565 1426;
  Mul 1420 275 1420; Mul 1442 631 1442; Add 1426 1420 1442; Mul 1196 629 1392; Mul 1235 282 1213;
  Add 1241 1196 1235; Mul 1245 655 1198; Mul 1229 271 1444; Add 1578 1245 1229; Add 1442 1442 1420;
  Add 1420 1578 1442; Add 1241 1241 1420; Sub 1296 1426 1241; Add 1235 1235 1196; Add 1229 1229 1245;
  Add 1426 1229 1426; Add 1235 1235 1426; Sub 1442 1442 1235; Sub 1296 1296 1442; Mul 1562 329 1562;
  Mul 1327 636 1327; Add 1442 1562 1327; Mul 1245 634 1661; Mul 1196 336 1628; Add 1195 1245 1196;
  Mul 1473 659 1105; Mul 1143 325 1555; Add 1416 1473 1143; Add 1327 1327 1562; Add 1562 1416 1327;
  Add 1195 1195 1562; Sub 1449 1442 1195; Add 1196 1196 1245; Add 1143 1143 1473; Add 1442 1143 1442;
  Add 1196 1196 1442; Sub 1327 1327 1196; Sub 1449 1449 1327; Mul 1378 384 1378; Mul 1563 641 1563;
  Add 1327 1378 1563; Mul 1473 639 1053; Mul 1245 391 1055; Add 1036 1473 1245; Mul 1417 663 1108;
  Mul 1662 381 1537; Add 1624 1417 1662; Add 1563 1563 1378; Add 1378 1624 1563; Add 1036 1036 1378;
  Sub 1447 1327 1036; Add 1245 1245 1473; Add 1662 1662 1417; Add 1327 1662 1327; Add 1245 1245 1327;
  Sub 1563 1563 1245; Sub 1447 1447 1563; Mul 1579 438 1579; Mul 1563 646 1402].
Definition casadi_f0_741 : list instruction := [
  Add 1417 1579 1563; Mul 1473 644 1506; Mul 1639 445 1320; Add 1349 1473 1639; Mul 1237 667 1110;
  Mul 1019 434 1093; Add 1375 1237 1019; Add 1563 1563 1579; Add 1579 1375 1563; Add 1349 1349 1579;
  Sub 1353 1417 1349; Add 1639 1639 1473; Add 1019 1019 1237; Add 1417 1019 1417; Add 1639 1639 1417;
  Sub 1563 1563 1639; Sub 1353 1353 1563; Add 1447 1447 1353; Add 1449 1449 1447; Add 1296 1296 1449;
  Mul 1296 676 1296; Mul 1563 687 1121; Add 1237 1296 1563; Sub 1565 1565 1237; Add 1374 1374 1565;
  Mul 1410 215 1410; Mul 1565 552 1674; Add 1410 1410 1565; Mul 1104 216 1104; Mul 1565 568 1430;
  Sub 1104 1104 1565; Sub 1410 1410 1104; Add 1374 1374 1410; Add 1423 1423 1374; Mul 1423 2 1423;
  Mul 1374 649 1650; Add 1423 1423 1374; Add 1127 1127 1423; Mul 1510 677 1510; Mul 1423 216 1248;
  Mul 1374 309 1430; Sub 1423 1423 1374; Mul 1374 215 1424; Mul 1410 332 1674; Add 1374 1374 1410;
  Add 1423 1423 1374; Mul 1374 484 1423; Add 1510 1510 1374; Mul 1374 706 1277; Mul 1410 216 1169;
  Mul 1104 349 1430; Sub 1410 1410 1104; Mul 1104 513 1410; Add 1374 1374 1104; Mul 1104 712 1278;
  Mul 1565 215 1169; Mul 1237 349 1674; Add 1565 1565 1237; Mul 1237 530 1565; Add 1104 1104 1237;
  Add 1374 1374 1104; Sub 1510 1510 1374; Mul 1374 711 1576; Mul 1104 706 1413; Mul 1237 519 1410;
  Add 1104 1104 1237; Mul 1237 677 1576; Mul 1473 494 1423; Add 1237 1237 1473; Add 1104 1104 1237;
  Mul 1237 215 1617; Mul 1473 344 1674; Add 1237 1237 1473; Mul 1473 714 1169; Mul 1491 216 1462;
  Mul 1499 328 1430; Sub 1491 1491 1499; Mul 1499 349 1491; Add 1473 1473 1499; Mul 1499 716 1248;
  Mul 1367 216 1367; Mul 1329 335 1430; Sub 1367 1367 1329; Mul 1456 215 1456; Mul 1329 324 1674;
  Add 1456 1456 1329; Add 1367 1367 1456; Mul 1456 309 1367; Add 1499 1499 1456; Add 1473 1473 1499;
  Add 1237 1237 1473; Sub 1104 1104 1237; Mul 1104 156 1104; Mul 1473 494 1104; Add 1374 1374 1473;
  Mul 1473 719 1343; Mul 1499 716 1424; Mul 1456 332 1367; Add 1499 1499 1456; Mul 1456 718 1169;
  Mul 1462 215 1462; Mul 1329 328 1674; Add 1462 1462 1329; Mul 1329 349 1462; Add 1456 1456 1329;
  Add 1499 1499 1456; Mul 1617 216 1617; Mul 1456 344 1430; Sub 1617 1617 1456; Sub 1499 1499 1617;
  Mul 1617 677 1343; Mul 1456 497 1423; Add 1617 1617 1456; Mul 1456 712 1413; Mul 1329 519 1565;
  Add 1456 1456 1329; Add 1617 1617 1456; Sub 1617 1499 1617; Mul 1617 156 1617; Mul 1456 497 1617;
  Add 1473 1473 1456; Sub 1374 1374 1473; Add 1510 1510 1374; Mul 1449 716 1449; Mul 1374 694 1367;
  Add 1473 1449 1374; Mul 1362 718 1362; Mul 1456 661 1462; Add 1362 1362 1456; Sub 1473 1473 1362;
  Mul 1406 714 1406; Mul 1362 638 1491; Add 1406 1406 1362; Sub 1473 1473 1406; Mul 1701 216 1701;
  Mul 1406 582 1430; Sub 1701 1701 1406; Mul 1494 215 1494; Mul 1406 618 1674; Add 1494 1494 1406;
  Sub 1701 1701 1494; Add 1473 1473 1701; Add 1510 1510 1473; Mul 1510 3 1510; Mul 1473 681 1625;
  Add 1510 1510 1473; Add 1127 1127 1510; Mul 1510 715 1526; Mul 1473 327 1227].
Definition casadi_f0_742 : list instruction := [
  Mul 1701 405 1421; Add 1473 1473 1701; Mul 1701 318 1166; Mul 1494 387 1142; Add 1701 1701 1494;
  Sub 1473 1473 1701; Mul 1701 510 1473; Add 1510 1510 1701; Mul 1701 721 1335; Mul 1494 318 1638;
  Mul 1406 363 1142; Add 1494 1494 1406; Mul 1406 310 1227; Mul 1362 405 1319; Add 1406 1406 1362;
  Sub 1494 1494 1406; Mul 1406 528 1494; Add 1701 1701 1406; Add 1510 1510 1701; Mul 1701 722 1396;
  Mul 1406 310 1166; Mul 1362 387 1319; Add 1406 1406 1362; Mul 1362 327 1638; Mul 1456 363 1421;
  Add 1362 1362 1456; Sub 1406 1406 1362; Mul 1362 479 1406; Add 1701 1701 1362; Add 1510 1510 1701;
  Mul 1701 726 1164; Mul 1362 318 1419; Mul 1456 404 1142; Add 1362 1362 1456; Mul 1456 310 1272;
  Mul 1329 399 1319; Add 1456 1456 1329; Sub 1362 1362 1456; Mul 1456 725 1227; Mul 1329 327 1358;
  Mul 1159 383 1421; Add 1329 1329 1159; Mul 1159 318 1459; Mul 1185 379 1142; Add 1159 1159 1185;
  Sub 1329 1329 1159; Mul 1159 405 1329; Add 1456 1456 1159; Mul 1159 727 1638; Mul 1459 310 1459;
  Mul 1185 379 1319; Add 1459 1459 1185; Mul 1185 327 1489; Mul 1305 390 1421; Add 1185 1185 1305;
  Sub 1459 1459 1185; Mul 1185 363 1459; Add 1159 1159 1185; Sub 1456 1456 1159; Add 1362 1362 1456;
  Mul 1456 715 1109; Mul 1159 515 1473; Add 1456 1456 1159; Mul 1159 722 1164; Mul 1185 486 1406;
  Add 1159 1159 1185; Sub 1456 1456 1159; Sub 1456 1362 1456; Mul 1456 723 1456; Mul 1159 486 1456;
  Add 1701 1701 1159; Mul 1159 730 1167; Mul 1272 327 1272; Mul 1185 399 1421; Add 1272 1272 1185;
  Mul 1185 318 1451; Mul 1305 408 1142; Add 1185 1185 1305; Sub 1272 1272 1185; Mul 1185 727 1166;
  Mul 1305 387 1459; Add 1185 1185 1305; Mul 1305 731 1227; Mul 1489 318 1489; Mul 1518 390 1142;
  Add 1489 1489 1518; Mul 1358 310 1358; Mul 1518 383 1319; Add 1358 1358 1518; Sub 1489 1489 1358;
  Mul 1358 405 1489; Add 1305 1305 1358; Sub 1185 1185 1305; Add 1272 1272 1185; Mul 1185 722 1167;
  Mul 1305 489 1406; Add 1185 1185 1305; Mul 1305 721 1109; Mul 1358 515 1494; Add 1305 1305 1358;
  Sub 1185 1185 1305; Sub 1185 1272 1185; Mul 1185 723 1185; Mul 1305 489 1185; Add 1159 1159 1305;
  Sub 1701 1701 1159; Add 1510 1510 1701; Mul 1701 725 1140; Mul 1159 643 1329; Add 1701 1701 1159;
  Mul 1159 731 1244; Mul 1305 665 1489; Add 1159 1159 1305; Mul 1305 727 1447; Mul 1358 701 1459;
  Add 1518 1305 1358; Add 1159 1159 1518; Add 1701 1701 1159; Mul 1159 310 1507; Mul 1518 620 1319;
  Add 1159 1159 1518; Mul 1518 327 1469; Mul 1182 595 1421; Add 1518 1518 1182; Mul 1493 318 1493;
  Mul 1182 395 1142; Add 1287 1493 1182; Add 1518 1518 1287; Add 1159 1159 1518; Sub 1701 1701 1159;
  Add 1510 1510 1701; Mul 1701 4 1510; Mul 1159 720 1538; Add 1701 1701 1159; Add 1127 1127 1701;
  Mul 1701 728 1692; Mul 1159 372 1233; Mul 1518 459 1230; Add 1159 1159 1518; Mul 1518 369 1432;
  Mul 1287 441 1279; Add 1518 1518 1287; Sub 1159 1159 1518; Mul 1518 443 1159; Add 1701 1701 1518;
  Mul 1518 733 1665; Mul 1287 369 1389; Mul 1427 417 1279; Add 1287 1287 1427].
Definition casadi_f0_743 : list instruction := [
  Mul 1427 358 1233; Mul 1089 459 1133; Add 1427 1427 1089; Sub 1287 1287 1427; Mul 1427 426 1287;
  Add 1518 1518 1427; Add 1701 1701 1518; Mul 1518 734 1642; Mul 1427 358 1432; Mul 1089 441 1133;
  Add 1427 1427 1089; Mul 1089 372 1389; Mul 1049 417 1230; Add 1089 1089 1049; Sub 1427 1427 1089;
  Mul 1089 478 1427; Add 1518 1518 1089; Add 1701 1701 1518; Mul 1518 735 1506; Mul 1089 369 1525;
  Mul 1049 458 1279; Add 1089 1089 1049; Mul 1049 358 1234; Mul 1352 451 1133; Add 1049 1049 1352;
  Sub 1089 1089 1049; Mul 1049 736 1233; Mul 1352 372 1282; Mul 1443 437 1230; Add 1352 1352 1443;
  Mul 1443 369 1242; Mul 1681 432 1279; Add 1443 1443 1681; Sub 1352 1352 1443; Mul 1443 459 1352;
  Add 1049 1049 1443; Mul 1443 738 1389; Mul 1242 358 1242; Mul 1681 432 1133; Add 1242 1242 1681;
  Mul 1681 372 1079; Mul 1365 444 1230; Add 1681 1681 1365; Sub 1242 1242 1681; Mul 1681 417 1242;
  Add 1443 1443 1681; Sub 1049 1049 1443; Add 1089 1089 1049; Mul 1049 728 1402; Mul 1443 438 1159;
  Add 1049 1049 1443; Mul 1443 734 1506; Mul 1681 445 1427; Add 1443 1443 1681; Sub 1049 1049 1443;
  Sub 1089 1089 1049; Mul 1089 430 1089; Mul 1049 445 1089; Add 1518 1518 1049; Mul 1049 739 1110;
  Mul 1234 372 1234; Mul 1443 451 1230; Add 1234 1234 1443; Mul 1443 369 1552; Mul 1681 462 1279;
  Add 1443 1443 1681; Sub 1234 1234 1443; Mul 1443 738 1432; Mul 1681 441 1242; Add 1443 1443 1681;
  Mul 1681 741 1233; Mul 1079 369 1079; Mul 1365 444 1279; Add 1079 1079 1365; Mul 1282 358 1282;
  Mul 1365 437 1133; Add 1282 1282 1365; Sub 1079 1079 1282; Mul 1282 459 1079; Add 1681 1681 1282;
  Sub 1443 1443 1681; Add 1234 1234 1443; Mul 1443 734 1110; Mul 1681 434 1427; Add 1443 1443 1681;
  Mul 1681 733 1402; Mul 1282 438 1287; Add 1681 1681 1282; Sub 1443 1443 1681; Sub 1234 1234 1443;
  Mul 1234 430 1234; Mul 1443 434 1234; Add 1049 1049 1443; Sub 1518 1518 1049; Add 1701 1701 1518;
  Mul 1518 736 1123; Mul 1049 648 1352; Add 1518 1518 1049; Mul 1049 741 1611; Mul 1443 669 1079;
  Add 1049 1049 1443; Mul 1443 738 1353; Mul 1681 708 1242; Add 1282 1443 1681; Add 1049 1049 1282;
  Add 1518 1518 1049; Mul 1049 358 1667; Mul 1282 622 1133; Add 1049 1049 1282; Mul 1282 372 1671;
  Mul 1365 608 1230; Add 1282 1282 1365; Mul 1422 369 1422; Mul 1365 449 1279; Add 1543 1422 1365;
  Add 1282 1282 1543; Add 1049 1049 1282; Sub 1518 1518 1049; Add 1701 1701 1518; Mul 1518 5 1701;
  Mul 1049 732 1309; Add 1518 1518 1049; Add 1127 1127 1518; Mul 1518 286 1533; Mul 1049 212 1518;
  Mul 1049 107 1049; Mul 1282 745 1288; Mul 1543 737 1288; Mul 1284 9 1518; Add 1543 1543 1284;
  Mul 1284 743 1290; Mul 1345 286 1361; Mul 1616 8 1345; Add 1284 1284 1616; Sub 1543 1543 1284;
  Mul 1284 269 1543; Mul 1616 81 1284; Mul 1686 746 1307; Mul 1344 743 1288; Mul 1210 9 1345;
  Sub 1344 1344 1210; Mul 1518 8 1518; Mul 1210 737 1290; Sub 1518 1518 1210; Sub 1344 1344 1518;
  Mul 1518 53 1344; Add 1686 1686 1518; Mul 1518 66 1543; Mul 1210 742 1678].
Definition casadi_f0_744 : list instruction := [
  Sub 1518 1518 1210; Add 1686 1686 1518; Mul 1518 323 1686; Mul 1210 47 1518; Mul 1636 378 1686;
  Mul 1521 24 1636; Mul 1612 752 1062; Mul 1377 66 1344; Mul 1221 746 1678; Sub 1377 1377 1221;
  Mul 1221 742 1307; Mul 1543 53 1543; Add 1221 1221 1543; Sub 1377 1377 1221; Mul 1221 35 1377;
  Add 1612 1612 1221; Mul 1221 378 1612; Mul 1543 31 1221; Sub 1521 1521 1543; Mul 1543 753 1026;
  Mul 1504 15 1612; Add 1543 1543 1504; Mul 1504 16 1686; Mul 1100 747 1250; Sub 1504 1504 1100;
  Add 1543 1543 1504; Mul 1543 430 1543; Mul 1504 26 1543; Mul 1612 16 1612; Mul 1100 753 1250;
  Sub 1612 1612 1100; Mul 1100 747 1026; Mul 1686 15 1686; Add 1100 1100 1686; Sub 1612 1612 1100;
  Mul 1612 430 1612; Mul 1100 28 1612; Sub 1504 1504 1100; Mul 1100 16 1543; Mul 1686 755 1250;
  Sub 1100 1100 1686; Mul 1686 757 1026; Mul 1371 15 1612; Add 1686 1686 1371; Sub 1100 1100 1686;
  Mul 1686 25 1100; Mul 1371 16 1612; Mul 1291 757 1250; Sub 1371 1371 1291; Mul 1291 755 1026;
  Mul 1035 15 1543; Add 1291 1291 1035; Add 1371 1371 1291; Mul 1291 32 1371; Sub 1686 1686 1291;
  Add 1686 1504 1686; Add 1521 1521 1686; Mul 1686 19 1521; Mul 1291 751 1269; Sub 1686 1686 1291;
  Mul 1291 763 1062; Mul 1035 19 1377; Mul 1490 752 1269; Sub 1035 1035 1490; Mul 1490 378 1035;
  Mul 1704 31 1490; Mul 1372 380 1636; Sub 1704 1704 1372; Mul 1035 430 1035; Mul 1372 28 1035;
  Mul 1543 433 1543; Sub 1372 1372 1543; Mul 1543 16 1372; Mul 1702 764 1250; Sub 1543 1543 1702;
  Mul 1702 766 1026; Mul 1612 433 1612; Mul 1705 26 1035; Sub 1612 1612 1705; Mul 1705 15 1612;
  Add 1702 1702 1705; Add 1543 1543 1702; Mul 1702 32 1035; Mul 1705 198 1100; Sub 1702 1702 1705;
  Add 1543 1543 1702; Add 1704 1704 1543; Mul 1543 35 1704; Add 1291 1291 1543; Add 1686 1686 1291;
  Add 1636 1636 1100; Mul 1100 48 1636; Add 1291 1221 1371; Mul 1543 19 1291; Mul 1702 765 1269;
  Sub 1543 1543 1702; Mul 1702 768 1062; Add 1705 1490 1035; Mul 1707 35 1705; Add 1702 1702 1707;
  Sub 1543 1543 1702; Mul 1702 55 1543; Sub 1100 1100 1702; Add 1686 1686 1100; Add 1210 1210 1686;
  Mul 1686 66 1210; Mul 1100 749 1678; Sub 1686 1686 1100; Mul 1100 762 1307; Mul 1221 380 1221;
  Mul 1490 24 1490; Sub 1221 1221 1490; Mul 1612 16 1612; Mul 1250 766 1250; Sub 1612 1612 1250;
  Mul 1026 764 1026; Mul 1372 15 1372; Add 1026 1026 1372; Sub 1612 1612 1026; Mul 1371 198 1371;
  Mul 1035 25 1035; Sub 1371 1371 1035; Add 1612 1612 1371; Add 1221 1221 1612; Mul 1612 62 1543;
  Mul 1705 19 1705; Mul 1371 768 1269; Sub 1705 1705 1371; Mul 1371 765 1062; Mul 1291 35 1291;
  Add 1371 1371 1291; Add 1705 1705 1371; Mul 1371 48 1705; Sub 1612 1612 1371; Add 1612 1221 1612;
  Mul 1377 323 1377; Mul 1371 47 1377; Sub 1612 1612 1371; Mul 1371 53 1612; Add 1100 1100 1371;
  Add 1686 1686 1100; Mul 1100 86 1543; Sub 1686 1686 1100; Add 1616 1616 1686; Mul 1686 9 1616;
  Add 1282 1282 1686; Mul 1612 66 1612; Mul 1686 762 1678; Sub 1612 1612 1686].
Definition casadi_f0_745 : list instruction := [
  Mul 1686 749 1307; Mul 1210 53 1210; Add 1686 1686 1210; Sub 1612 1612 1686; Mul 1686 91 1543;
  Add 1612 1612 1686; Mul 1344 269 1344; Mul 1686 81 1344; Sub 1612 1612 1686; Mul 1686 8 1612;
  Mul 1210 758 1290; Sub 1686 1686 1210; Add 1282 1282 1686; Mul 1543 102 1543; Add 1686 1377 1705;
  Mul 1210 66 1686; Mul 1100 770 1678; Sub 1210 1210 1100; Mul 1100 772 1307; Add 1371 1518 1636;
  Mul 1291 53 1371; Add 1100 1100 1291; Add 1210 1210 1100; Add 1100 1344 1210; Mul 1291 8 1100;
  Mul 1035 773 1290; Sub 1291 1291 1035; Mul 1035 776 1288; Mul 1371 66 1371; Mul 1678 772 1678;
  Sub 1371 1371 1678; Mul 1307 770 1307; Mul 1686 53 1686; Add 1307 1307 1686; Sub 1371 1371 1307;
  Add 1307 1284 1371; Mul 1686 9 1307; Add 1035 1035 1686; Sub 1291 1291 1035; Mul 1291 108 1291;
  Sub 1543 1543 1291; Add 1282 1282 1543; Add 1049 1049 1282; Mul 1049 114 1049; Mul 1361 740 1361;
  Sub 1049 1049 1361; Mul 1533 774 1533; Mul 1616 8 1616; Mul 1361 745 1290; Sub 1616 1616 1361;
  Mul 1361 758 1288; Mul 1612 9 1612; Add 1361 1361 1612; Sub 1616 1616 1361; Mul 1288 773 1288;
  Mul 1100 9 1100; Add 1288 1288 1100; Mul 1307 8 1307; Mul 1290 776 1290; Sub 1307 1307 1290;
  Add 1288 1288 1307; Mul 1307 108 1288; Add 1616 1616 1307; Mul 1345 212 1345; Mul 1307 107 1345;
  Sub 1616 1616 1307; Mul 1616 113 1616; Add 1533 1533 1616; Sub 1049 1049 1533; Add 1127 1127 1049;
  Mul 1049 210 1127; Sub 1514 1514 1049; Div 1049 1561 92; Mul 1533 1069 1201; Sub 1049 1049 1533;
  Mul 1533 779 1049; Add 1582 1582 1171; Add 1129 1129 1238; Sub 1582 1582 1129; Add 1501 1501 1382;
  Add 1418 1418 1452; Sub 1501 1501 1418; Add 1685 1685 1501; Sub 1582 1582 1685; Add 1582 1582 1560;
  Add 1060 1060 1152; Add 1341 1341 1082; Sub 1060 1060 1341; Add 1399 1399 1302; Add 1476 1476 1106;
  Add 1399 1399 1476; Add 1700 1700 1652; Add 1274 1274 1468; Sub 1700 1700 1274; Add 1399 1399 1700;
  Sub 1060 1060 1399; Add 1060 1060 1270; Add 1695 1695 1144; Add 1252 1252 1609; Sub 1695 1695 1252;
  Add 1283 1283 1529; Add 1551 1551 1316; Add 1283 1283 1551; Add 1255 1255 1622; Add 1161 1161 1094;
  Sub 1255 1255 1161; Add 1283 1283 1255; Sub 1695 1695 1283; Add 1695 1695 1146; Add 1429 1429 1471;
  Add 1240 1240 1141; Sub 1429 1429 1240; Add 1699 1699 1425; Add 1527 1527 1281; Add 1699 1699 1527;
  Add 1461 1461 1125; Add 1659 1659 1317; Sub 1461 1461 1659; Add 1699 1699 1461; Sub 1429 1429 1699;
  Add 1429 1429 1644; Add 1664 1664 1226; Add 1158 1158 1663; Sub 1664 1664 1158; Add 1403 1403 1253;
  Add 1107 1107 1598; Add 1403 1403 1107; Add 1567 1567 1668; Add 1394 1394 1163; Sub 1567 1567 1394;
  Add 1403 1403 1567; Sub 1664 1664 1403; Add 1664 1664 1683; Add 1429 1429 1664; Add 1695 1695 1429;
  Add 1060 1060 1695; Add 1582 1582 1060; Mul 1582 216 1582; Mul 1683 780 1430; Sub 1582 1582 1683;
  Mul 1683 781 1674; Add 1587 1587 1340; Add 1495 1495 1087; Sub 1587 1587 1495; Sub 1643 1643 1587;
  Add 1383 1383 1706; Add 1118 1118 1122; Sub 1383 1383 1118; Add 1643 1643 1383].
Definition casadi_f0_746 : list instruction := [
  Sub 1643 1643 1130; Add 1246 1246 1497; Add 1513 1513 1593; Sub 1246 1246 1513; Add 1580 1580 1175;
  Add 1312 1312 1586; Add 1580 1580 1312; Add 1448 1448 1077; Add 1604 1604 1038; Sub 1448 1448 1604;
  Add 1580 1580 1448; Sub 1246 1246 1580; Sub 1246 1246 1517; Add 1641 1641 1199; Add 1285 1285 1581;
  Sub 1641 1641 1285; Add 1326 1326 1148; Add 1415 1415 1047; Add 1326 1326 1415; Add 1610 1610 1265;
  Add 1084 1084 1360; Sub 1610 1610 1084; Add 1326 1326 1610; Sub 1641 1641 1326; Sub 1641 1641 1188;
  Add 1113 1113 1216; Add 1594 1594 1401; Sub 1113 1113 1594; Add 1481 1481 1693; Add 1453 1453 1454;
  Add 1481 1481 1453; Add 1179 1179 1535; Add 1218 1218 1559; Sub 1179 1179 1218; Add 1481 1481 1179;
  Sub 1113 1113 1481; Sub 1113 1113 1243; Add 1475 1475 1684; Add 1323 1323 1032; Sub 1475 1475 1323;
  Add 1217 1217 1676; Add 1114 1114 1649; Add 1217 1217 1114; Add 1186 1186 1116; Add 1672 1672 1584;
  Sub 1186 1186 1672; Add 1217 1217 1186; Sub 1475 1475 1217; Sub 1475 1475 1590; Add 1113 1113 1475;
  Add 1641 1641 1113; Add 1246 1246 1641; Add 1643 1643 1246; Mul 1643 215 1643; Add 1683 1683 1643;
  Sub 1582 1582 1683; Sub 1540 1540 1696; Sub 1445 1445 1350; Sub 1574 1574 1657; Sub 1509 1509 1688;
  Sub 1135 1135 1484; Add 1509 1509 1135; Add 1574 1574 1509; Add 1445 1445 1574; Add 1540 1540 1445;
  Mul 1540 540 1540; Mul 1696 625 1654; Sub 1540 1540 1696; Mul 1696 651 1083; Sub 1632 1632 1205;
  Add 1680 1680 1486; Add 1466 1466 1030; Add 1608 1608 1431; Add 1588 1588 1522; Add 1608 1608 1588;
  Add 1466 1466 1608; Add 1680 1680 1466; Add 1632 1632 1680; Mul 1632 544 1632; Add 1696 1696 1632;
  Add 1540 1540 1696; Sub 1582 1582 1540; Mul 1582 0 1582; Mul 1540 23 1651; Add 1582 1582 1540;
  Mul 1648 508 1648; Mul 1540 534 1549; Add 1648 1648 1540; Add 1139 1139 1193; Mul 1613 482 1613;
  Mul 1433 511 1433; Add 1613 1613 1433; Sub 1139 1139 1613; Add 1324 1324 1139; Mul 1393 490 1393;
  Mul 1441 514 1441; Add 1393 1393 1441; Sub 1324 1324 1393; Add 1256 1256 1324; Mul 1370 498 1370;
  Mul 1480 518 1480; Add 1370 1370 1480; Sub 1256 1256 1370; Add 1583 1583 1256; Mul 1154 522 1154;
  Mul 1239 506 1239; Sub 1154 1154 1239; Sub 1583 1583 1154; Mul 1154 526 1583; Mul 1239 784 1091;
  Add 1154 1154 1239; Add 1691 1691 1315; Mul 1075 1304 1075; Add 1463 1463 1075; Mul 1463 20 1463;
  Add 1691 1691 1463; Add 1568 1568 1691; Mul 1515 1153 1515; Add 1292 1292 1515; Mul 1292 37 1292;
  Add 1568 1568 1292; Add 1162 1162 1568; Mul 1017 1212 1017; Add 1436 1436 1017; Mul 1436 80 1436;
  Add 1162 1162 1436; Add 1546 1546 1162; Mul 1542 1293 1542; Add 1145 1145 1542; Mul 1145 100 1145;
  Sub 1546 1546 1145; Mul 1546 536 1546; Mul 1145 496 1223; Add 1546 1546 1145; Add 1154 1154 1546;
  Sub 1648 1648 1154; Mul 1154 546 1460; Mul 1546 538 1703; Add 1154 1154 1546; Mul 1546 791 1174;
  Mul 1081 215 1081; Mul 1145 222 1674; Add 1081 1081 1145; Mul 1439 216 1439; Mul 1145 229 1430;
  Sub 1439 1439 1145; Sub 1081 1081 1439; Mul 1439 540 1690; Mul 1145 227 1654].
Definition casadi_f0_747 : list instruction := [
  Sub 1439 1439 1145; Mul 1145 544 1597; Mul 1436 219 1083; Add 1145 1145 1436; Sub 1439 1439 1145;
  Add 1081 1081 1439; Mul 1439 526 1112; Mul 1145 543 1091; Add 1439 1439 1145; Mul 1174 536 1174;
  Mul 1145 537 1223; Add 1174 1174 1145; Sub 1439 1439 1174; Sub 1439 1081 1439; Mul 1439 141 1439;
  Mul 1174 537 1439; Add 1546 1546 1174; Sub 1154 1154 1546; Add 1648 1648 1154; Mul 1154 556 1502;
  Mul 1101 560 1101; Add 1546 1154 1101; Sub 1232 1546 1232; Sub 1398 1435 1398; Sub 1670 1071 1670;
  Add 1398 1398 1670; Add 1101 1101 1154; Sub 1254 1254 1101; Add 1398 1398 1254; Sub 1232 1232 1398;
  Mul 1398 570 1318; Mul 1606 574 1606; Add 1254 1398 1606; Sub 1363 1254 1363; Sub 1478 1478 1411;
  Sub 1618 1618 1180; Add 1478 1478 1618; Add 1606 1606 1398; Sub 1621 1621 1606; Add 1478 1478 1621;
  Sub 1363 1363 1478; Mul 1478 584 1181; Mul 1467 588 1467; Add 1621 1478 1467; Sub 1332 1621 1332;
  Sub 1570 1570 1601; Sub 1591 1591 1131; Add 1570 1570 1591; Add 1467 1467 1478; Sub 1550 1550 1467;
  Add 1570 1570 1550; Sub 1332 1332 1570; Mul 1570 597 1687; Mul 1172 601 1172; Add 1550 1570 1172;
  Sub 1548 1550 1548; Sub 1660 1660 1558; Sub 1391 1391 1099; Add 1660 1660 1391; Add 1172 1172 1570;
  Sub 1496 1496 1172; Add 1660 1660 1496; Sub 1548 1548 1660; Mul 1660 610 1479; Mul 1599 614 1599;
  Add 1496 1660 1599; Sub 1388 1496 1388; Sub 1170 1170 1097; Sub 1554 1554 1190; Add 1170 1170 1554;
  Add 1599 1599 1660; Sub 1275 1275 1599; Add 1170 1170 1275; Sub 1388 1388 1170; Add 1548 1548 1388;
  Add 1332 1332 1548; Add 1363 1363 1332; Add 1232 1232 1363; Mul 1232 216 1232; Mul 1170 251 1430;
  Sub 1232 1232 1170; Mul 1170 230 1470; Mul 1675 225 1675; Add 1275 1170 1675; Mul 1368 231 1368;
  Mul 1660 223 1434; Sub 1368 1368 1660; Sub 1275 1275 1368; Mul 1268 560 1268; Mul 1660 553 1502;
  Add 1554 1268 1660; Mul 1048 244 1048; Mul 1168 248 1168; Add 1190 1048 1168; Sub 1554 1554 1190;
  Sub 1275 1275 1554; Mul 1502 558 1502; Mul 1088 560 1088; Add 1554 1502 1088; Mul 1658 243 1658;
  Mul 1407 249 1407; Add 1190 1658 1407; Sub 1554 1554 1190; Add 1275 1275 1554; Mul 1333 219 1333;
  Mul 1597 239 1597; Add 1333 1333 1597; Mul 1090 227 1090; Mul 1690 246 1690; Add 1090 1090 1690;
  Add 1333 1333 1090; Mul 1355 467 1355; Mul 1503 525 1503; Sub 1355 1355 1503; Add 1333 1333 1355;
  Mul 1231 231 1231; Mul 1355 559 1434; Sub 1231 1231 1355; Mul 1355 616 1470; Mul 1338 225 1338;
  Add 1355 1355 1338; Add 1231 1231 1355; Add 1333 1333 1231; Mul 1333 213 1333; Sub 1275 1275 1333;
  Mul 1231 572 1318; Mul 1147 574 1147; Add 1355 1231 1147; Mul 1191 284 1191; Mul 1575 258 1575;
  Add 1338 1191 1575; Sub 1355 1355 1338; Mul 1338 297 1198; Mul 1503 271 1573; Add 1090 1338 1503;
  Mul 1690 282 1157; Mul 1597 300 1392; Add 1554 1690 1597; Add 1090 1090 1554; Mul 1177 574 1177;
  Mul 1318 567 1318; Add 1554 1177 1318; Mul 1520 279 1520; Mul 1369 276 1369; Add 1190 1520 1369;
  Sub 1554 1554 1190; Add 1090 1090 1554; Sub 1355 1355 1090; Mul 1263 255 1263].
Definition casadi_f0_748 : list instruction := [
  Mul 1090 280 1488; Add 1263 1263 1090; Mul 1098 278 1098; Mul 1090 266 1022; Add 1098 1098 1090;
  Add 1263 1263 1098; Mul 1257 296 1257; Mul 1653 472 1653; Add 1257 1257 1653; Add 1263 1263 1257;
  Mul 1257 573 1392; Mul 1694 282 1694; Add 1257 1257 1694; Mul 1694 617 1198; Mul 1251 271 1251;
  Add 1694 1694 1251; Sub 1257 1257 1694; Add 1263 1263 1257; Mul 1263 213 1263; Sub 1355 1355 1263;
  Mul 1257 586 1181; Mul 1545 588 1545; Add 1694 1257 1545; Mul 1354 338 1354; Mul 1572 312 1572;
  Add 1251 1354 1572; Sub 1694 1694 1251; Mul 1251 351 1105; Mul 1653 325 1500; Add 1098 1251 1653;
  Mul 1090 336 1037; Mul 1554 354 1661; Add 1190 1090 1554; Add 1098 1098 1190; Mul 1465 588 1465;
  Mul 1181 581 1181; Add 1190 1465 1181; Mul 1523 333 1523; Mul 1151 330 1151; Add 1097 1523 1151;
  Sub 1190 1190 1097; Add 1098 1098 1190; Sub 1694 1694 1098; Mul 1645 309 1645; Mul 1098 334 1248;
  Add 1645 1645 1098; Mul 1458 332 1458; Mul 1098 320 1424; Add 1458 1458 1098; Add 1645 1645 1458;
  Mul 1132 349 1132; Mul 1169 474 1169; Add 1132 1132 1169; Add 1645 1645 1132; Mul 1132 587 1661;
  Mul 1271 336 1271; Add 1132 1132 1271; Mul 1271 619 1105; Mul 1310 325 1310; Add 1271 1271 1310;
  Sub 1132 1132 1271; Add 1645 1645 1132; Mul 1645 213 1645; Sub 1694 1694 1645; Mul 1132 599 1687;
  Mul 1511 601 1511; Add 1271 1132 1511; Mul 1051 393 1051; Mul 1016 366 1016; Add 1310 1051 1016;
  Sub 1271 1271 1310; Mul 1310 406 1108; Mul 1169 381 1409; Add 1458 1310 1169; Mul 1098 391 1679;
  Mul 1190 409 1053; Add 1097 1098 1190; Add 1458 1458 1097; Mul 1103 601 1103; Mul 1687 594 1687;
  Add 1097 1103 1687; Mul 1595 388 1595; Mul 1351 385 1351; Add 1570 1595 1351; Sub 1097 1097 1570;
  Add 1458 1458 1097; Sub 1271 1271 1458; Mul 1337 363 1337; Mul 1458 389 1638; Add 1337 1337 1458;
  Mul 1634 387 1634; Mul 1458 374 1166; Add 1634 1634 1458; Add 1337 1337 1634; Mul 1204 405 1204;
  Mul 1227 476 1227; Add 1204 1204 1227; Add 1337 1337 1204; Mul 1204 600 1053; Mul 1313 391 1313;
  Add 1204 1204 1313; Mul 1313 621 1108; Mul 1682 381 1682; Add 1313 1313 1682; Sub 1204 1204 1313;
  Add 1337 1337 1204; Mul 1337 213 1337; Sub 1271 1271 1337; Mul 1204 612 1479; Mul 1571 614 1571;
  Add 1313 1204 1571; Mul 1512 447 1512; Mul 1124 420 1124; Add 1682 1512 1124; Sub 1313 1313 1682;
  Mul 1682 460 1110; Mul 1227 434 1386; Add 1634 1682 1227; Mul 1458 445 1119; Mul 1097 463 1506;
  Add 1570 1458 1097; Add 1634 1634 1570; Mul 1566 614 1566; Mul 1479 607 1479; Add 1570 1566 1479;
  Mul 1225 442 1225; Mul 1589 439 1589; Add 1391 1225 1589; Sub 1570 1570 1391; Add 1634 1634 1570;
  Sub 1313 1313 1634; Mul 1634 417 1692; Mul 1570 443 1389; Add 1634 1634 1570; Mul 1570 441 1665;
  Mul 1391 426 1432; Add 1570 1570 1391; Add 1634 1634 1570; Mul 1570 459 1642; Mul 1233 478 1233;
  Add 1570 1570 1233; Add 1634 1634 1570; Mul 1570 611 1506; Mul 1074 445 1074; Add 1570 1570 1074;
  Mul 1074 623 1110; Mul 1150 434 1150; Add 1074 1074 1150; Sub 1570 1570 1074].
Definition casadi_f0_749 : list instruction := [
  Add 1634 1634 1570; Mul 1634 213 1634; Sub 1313 1313 1634; Add 1271 1271 1313; Add 1694 1694 1271;
  Add 1355 1355 1694; Add 1275 1275 1355; Mul 1275 215 1275; Mul 1570 470 1674; Add 1275 1275 1570;
  Sub 1232 1232 1275; Mul 1275 225 1528; Mul 1570 624 1470; Add 1074 1275 1570; Mul 1150 231 1096;
  Mul 1233 650 1434; Sub 1150 1150 1233; Sub 1074 1074 1150; Mul 1247 213 1247; Add 1233 1074 1247;
  Mul 1392 655 1392; Mul 1444 282 1444; Add 1391 1392 1444; Sub 1391 1289 1391; Mul 1213 271 1213;
  Mul 1198 629 1198; Add 1099 1213 1198; Add 1391 1391 1099; Mul 1086 213 1086; Sub 1099 1391 1086;
  Mul 1661 659 1661; Mul 1555 336 1555; Add 1558 1661 1555; Sub 1558 1646 1558; Mul 1628 325 1628;
  Mul 1105 634 1105; Add 1478 1628 1105; Add 1558 1558 1478; Mul 1547 213 1547; Sub 1478 1558 1547;
  Mul 1053 663 1053; Mul 1537 391 1537; Add 1591 1053 1537; Sub 1591 1627 1591; Mul 1055 381 1055;
  Mul 1108 639 1108; Add 1131 1055 1108; Add 1591 1591 1131; Mul 1539 213 1539; Sub 1131 1591 1539;
  Mul 1601 667 1506; Mul 1093 445 1093; Add 1398 1601 1093; Sub 1398 1640 1398; Mul 1320 434 1320;
  Mul 1618 644 1110; Add 1180 1320 1618; Add 1398 1398 1180; Mul 1209 213 1209; Sub 1180 1398 1209;
  Add 1131 1131 1180; Add 1478 1478 1131; Add 1099 1099 1478; Add 1233 1233 1099; Mul 1233 540 1233;
  Mul 1411 250 1654; Sub 1233 1233 1411; Mul 1096 225 1096; Mul 1470 650 1470; Add 1411 1096 1470;
  Mul 1528 231 1528; Mul 1434 624 1434; Sub 1528 1528 1434; Add 1470 1470 1096; Mul 1607 242 1607;
  Mul 1474 626 1474; Sub 1607 1607 1474; Add 1474 1470 1607; Add 1096 1528 1474; Sub 1096 1411 1096;
  Add 1411 1411 1607; Add 1528 1528 1411; Sub 1470 1470 1528; Sub 1096 1096 1470; Sub 1229 1229 1241;
  Sub 1578 1578 1235; Sub 1229 1229 1578; Sub 1143 1143 1195; Sub 1416 1416 1196; Sub 1143 1143 1416;
  Sub 1662 1662 1036; Sub 1624 1624 1245; Sub 1662 1662 1624; Sub 1019 1019 1349; Sub 1375 1375 1639;
  Sub 1019 1019 1375; Add 1662 1662 1019; Add 1143 1143 1662; Add 1229 1229 1143; Add 1096 1096 1229;
  Mul 1375 544 1096; Mul 1639 806 1083; Add 1375 1375 1639; Add 1233 1233 1375; Sub 1232 1232 1233;
  Add 1648 1648 1232; Mul 1648 216 1648; Mul 1232 652 1430; Sub 1648 1648 1232; Mul 1232 804 1674;
  Mul 1137 508 1137; Mul 1233 521 1549; Add 1137 1137 1233; Add 1111 1111 1075; Mul 1111 20 1111;
  Add 1311 1311 1376; Sub 1111 1111 1311; Sub 1215 1111 1215; Add 1258 1258 1515; Mul 1258 37 1258;
  Add 1215 1215 1258; Sub 1211 1215 1211; Add 1585 1585 1017; Mul 1585 80 1585; Add 1211 1211 1585;
  Add 1024 1024 1211; Sub 1620 1620 1542; Mul 1620 100 1620; Add 1024 1024 1620; Mul 1024 526 1024;
  Mul 1620 499 1091; Add 1024 1024 1620; Mul 1583 536 1583; Mul 1620 784 1223; Add 1583 1583 1620;
  Add 1024 1024 1583; Sub 1137 1137 1024; Mul 1112 791 1112; Mul 1439 543 1439; Add 1112 1112 1439;
  Mul 1460 539 1460; Mul 1439 538 1697; Add 1460 1460 1439; Sub 1112 1112 1460; Add 1137 1137 1112;
  Add 1675 1675 1170; Sub 1675 1675 1368; Add 1407 1407 1658; Add 1088 1088 1502].
Definition casadi_f0_750 : list instruction := [
  Sub 1407 1407 1088; Sub 1675 1675 1407; Add 1168 1168 1048; Add 1660 1660 1268; Sub 1168 1168 1660;
  Add 1675 1675 1168; Add 1675 1675 1333; Add 1369 1369 1520; Add 1318 1318 1177; Sub 1369 1369 1318;
  Add 1597 1597 1690; Add 1503 1503 1338; Add 1597 1597 1503; Add 1575 1575 1191; Add 1147 1147 1231;
  Sub 1575 1575 1147; Add 1597 1597 1575; Sub 1369 1369 1597; Add 1369 1369 1263; Add 1151 1151 1523;
  Add 1181 1181 1465; Sub 1151 1151 1181; Add 1554 1554 1090; Add 1653 1653 1251; Add 1554 1554 1653;
  Add 1572 1572 1354; Add 1545 1545 1257; Sub 1572 1572 1545; Add 1554 1554 1572; Sub 1151 1151 1554;
  Add 1151 1151 1645; Add 1351 1351 1595; Add 1687 1687 1103; Sub 1351 1351 1687; Add 1190 1190 1098;
  Add 1169 1169 1310; Add 1190 1190 1169; Add 1016 1016 1051; Add 1511 1511 1132; Sub 1016 1016 1511;
  Add 1190 1190 1016; Sub 1351 1351 1190; Add 1351 1351 1337; Add 1589 1589 1225; Add 1479 1479 1566;
  Sub 1589 1589 1479; Add 1097 1097 1458; Add 1227 1227 1682; Add 1097 1097 1227; Add 1124 1124 1512;
  Add 1571 1571 1204; Sub 1124 1124 1571; Add 1097 1097 1124; Sub 1589 1589 1097; Add 1589 1589 1634;
  Add 1351 1351 1589; Add 1151 1151 1351; Add 1369 1369 1151; Add 1675 1675 1369; Mul 1675 216 1675;
  Mul 1634 507 1430; Sub 1675 1675 1634; Add 1071 1071 1435; Sub 1101 1101 1192; Sub 1071 1071 1101;
  Sub 1505 1505 1546; Add 1071 1071 1505; Add 1346 1346 1477; Sub 1606 1606 1603; Sub 1346 1346 1606;
  Sub 1207 1207 1254; Add 1346 1346 1207; Add 1348 1348 1666; Sub 1467 1467 1577; Sub 1348 1348 1467;
  Sub 1438 1438 1621; Add 1348 1348 1438; Add 1364 1364 1339; Sub 1172 1172 1224; Sub 1364 1364 1172;
  Sub 1267 1267 1550; Add 1364 1364 1267; Add 1261 1261 1236; Sub 1599 1599 1149; Sub 1261 1261 1599;
  Sub 1536 1536 1496; Add 1261 1261 1536; Add 1364 1364 1261; Add 1348 1348 1364; Add 1346 1346 1348;
  Add 1071 1071 1346; Mul 1071 215 1071; Mul 1536 226 1674; Add 1071 1071 1536; Sub 1675 1675 1071;
  Sub 1411 1411 1474; Sub 1426 1426 1420; Sub 1442 1442 1562; Sub 1327 1327 1378; Sub 1417 1417 1579;
  Add 1327 1327 1417; Add 1442 1442 1327; Add 1426 1426 1442; Add 1411 1411 1426; Mul 1579 540 1411;
  Mul 1378 805 1654; Sub 1579 1579 1378; Add 1570 1570 1275; Sub 1150 1150 1570; Sub 1570 1150 1247;
  Add 1444 1444 1392; Add 1198 1198 1213; Add 1289 1289 1198; Sub 1444 1444 1289; Add 1289 1444 1086;
  Add 1555 1555 1661; Add 1105 1105 1628; Add 1646 1646 1105; Sub 1555 1555 1646; Add 1646 1555 1547;
  Add 1537 1537 1053; Add 1108 1108 1055; Add 1627 1627 1108; Sub 1537 1537 1627; Add 1627 1537 1539;
  Add 1093 1093 1601; Add 1618 1618 1320; Add 1640 1640 1618; Sub 1093 1093 1640; Add 1640 1093 1209;
  Add 1627 1627 1640; Add 1646 1646 1627; Add 1289 1289 1646; Add 1570 1570 1289; Mul 1570 544 1570;
  Mul 1618 693 1083; Add 1570 1570 1618; Add 1579 1579 1570; Sub 1675 1675 1579; Add 1137 1137 1675;
  Mul 1137 215 1137; Add 1232 1232 1137; Sub 1648 1648 1232; Sub 1074 1074 1247; Add 1391 1391 1086;
  Add 1558 1558 1547; Add 1591 1591 1539; Add 1398 1398 1209; Add 1591 1591 1398].
Definition casadi_f0_751 : list instruction := [
  Add 1558 1558 1591; Add 1391 1391 1558; Add 1074 1074 1391; Mul 1074 216 1074; Mul 1232 305 1430;
  Sub 1074 1074 1232; Mul 1411 215 1411; Mul 1232 805 1674; Add 1411 1411 1232; Sub 1074 1074 1411;
  Add 1703 1703 1074; Mul 1703 540 1703; Mul 1074 307 1654; Sub 1703 1703 1074; Mul 1074 360 1083;
  Mul 1096 216 1096; Mul 1411 806 1430; Sub 1096 1096 1411; Add 1150 1150 1247; Sub 1444 1444 1086;
  Sub 1555 1555 1547; Sub 1537 1537 1539; Sub 1093 1093 1209; Add 1537 1537 1093; Add 1555 1555 1537;
  Add 1444 1444 1555; Add 1150 1150 1444; Mul 1150 215 1150; Mul 1209 700 1674; Add 1150 1150 1209;
  Sub 1096 1096 1150; Add 1697 1697 1096; Mul 1697 544 1697; Add 1074 1074 1697; Add 1703 1703 1074;
  Sub 1648 1648 1703; Mul 1648 1 1648; Mul 1703 469 1492; Add 1648 1648 1703; Add 1582 1582 1648;
  Mul 1648 602 1256; Mul 1703 783 1631; Add 1648 1648 1703; Mul 1703 670 1162; Mul 1074 488 1203;
  Add 1703 1703 1074; Add 1648 1648 1703; Mul 1703 671 1524; Mul 1074 532 1602; Add 1703 1703 1074;
  Sub 1648 1648 1703; Mul 1703 679 1347; Mul 1074 523 1541; Add 1703 1703 1074; Mul 1074 796 1556;
  Mul 1488 680 1488; Mul 1697 255 1487; Add 1488 1488 1697; Mul 1022 674 1022; Mul 1697 278 1384;
  Sub 1022 1022 1697; Sub 1488 1488 1022; Mul 1325 216 1325; Mul 1022 294 1430; Sub 1325 1325 1022;
  Mul 1557 215 1557; Mul 1022 299 1674; Add 1557 1557 1022; Add 1325 1325 1557; Sub 1488 1488 1325;
  Mul 1325 670 1556; Mul 1557 502 1203; Add 1325 1325 1557; Mul 1557 602 1655; Mul 1022 505 1631;
  Add 1557 1557 1022; Sub 1325 1325 1557; Sub 1325 1488 1325; Mul 1325 672 1325; Mul 1557 502 1325;
  Add 1074 1074 1557; Sub 1703 1703 1074; Add 1648 1648 1703; Mul 1703 674 1099; Mul 1074 794 1384;
  Sub 1703 1703 1074; Mul 1074 680 1229; Mul 1557 689 1487; Add 1022 1074 1557; Add 1455 1455 1042;
  Add 1677 1677 1200; Add 1573 1573 1677; Sub 1455 1455 1573; Add 1573 1455 1486; Add 1165 1165 1330;
  Add 1647 1647 1206; Add 1500 1500 1647; Sub 1165 1165 1500; Add 1500 1165 1030; Add 1380 1380 1021;
  Add 1450 1450 1689; Add 1409 1409 1450; Sub 1380 1380 1409; Add 1409 1380 1431; Add 1219 1219 1295;
  Add 1189 1189 1440; Add 1386 1386 1189; Sub 1219 1219 1386; Add 1386 1219 1522; Add 1409 1409 1386;
  Add 1500 1500 1409; Add 1573 1573 1500; Mul 1573 676 1573; Mul 1189 410 1121; Add 1573 1573 1189;
  Sub 1022 1022 1573; Add 1703 1703 1022; Mul 1022 215 1355; Mul 1573 461 1674; Add 1022 1022 1573;
  Mul 1363 216 1363; Mul 1573 277 1430; Sub 1363 1363 1573; Sub 1022 1022 1363; Add 1703 1703 1022;
  Add 1648 1648 1703; Mul 1648 216 1648; Mul 1703 707 1430; Sub 1648 1648 1703; Mul 1703 793 1674;
  Mul 1022 602 1211; Mul 1573 491 1631; Add 1022 1022 1573; Mul 1573 670 1256; Mul 1189 783 1203;
  Add 1573 1573 1189; Add 1022 1022 1573; Mul 1573 671 1698; Mul 1189 517 1602; Add 1573 1573 1189;
  Sub 1022 1022 1573; Mul 1573 796 1655; Mul 1189 505 1325; Add 1573 1573 1189; Mul 1189 675 1347;
  Mul 1440 523 1194; Add 1189 1189 1440; Sub 1573 1573 1189; Add 1022 1022 1573].
Definition casadi_f0_752 : list instruction := [
  Mul 1573 674 1426; Mul 1189 682 1384; Sub 1573 1573 1189; Mul 1189 680 1289; Mul 1440 808 1487;
  Add 1189 1189 1440; Add 1400 1400 1308; Sub 1157 1157 1400; Add 1173 1173 1176; Add 1157 1157 1173;
  Sub 1173 1157 1350; Add 1134 1134 1412; Sub 1037 1037 1134; Add 1297 1297 1483; Add 1037 1037 1297;
  Sub 1297 1037 1657; Add 1673 1673 1656; Sub 1679 1679 1673; Add 1156 1156 1457; Add 1679 1679 1156;
  Sub 1156 1679 1688; Add 1633 1633 1482; Sub 1119 1119 1633; Add 1102 1102 1187; Add 1119 1119 1102;
  Sub 1102 1119 1484; Add 1156 1156 1102; Add 1297 1297 1156; Add 1173 1173 1297; Mul 1173 676 1173;
  Mul 1187 301 1121; Add 1173 1173 1187; Sub 1189 1189 1173; Add 1189 1573 1189; Mul 1346 215 1346;
  Mul 1173 303 1674; Add 1187 1346 1173; Mul 1633 216 1369; Mul 1482 468 1430; Sub 1633 1633 1482;
  Sub 1187 1187 1633; Add 1189 1189 1187; Add 1022 1022 1189; Mul 1022 215 1022; Add 1703 1703 1022;
  Sub 1022 1648 1703; Mul 1426 215 1426; Mul 1189 682 1674; Add 1187 1426 1189; Mul 1633 216 1391;
  Mul 1482 792 1430; Sub 1633 1633 1482; Sub 1187 1187 1633; Add 1541 1541 1187; Mul 1187 540 1541;
  Mul 1633 233 1654; Sub 1187 1187 1633; Mul 1633 789 1083; Mul 1482 215 1444; Mul 1457 686 1674;
  Add 1482 1482 1457; Mul 1229 216 1229; Mul 1457 689 1430; Sub 1229 1229 1457; Sub 1482 1482 1229;
  Add 1194 1194 1482; Mul 1482 544 1194; Add 1633 1633 1482; Add 1187 1187 1633; Sub 1022 1022 1187;
  Mul 1022 2 1022; Mul 1187 285 1650; Add 1022 1022 1187; Add 1582 1582 1022; Mul 1022 677 1278;
  Mul 1187 530 1423; Add 1022 1022 1187; Mul 1187 706 1324; Mul 1633 782 1410; Add 1187 1187 1633;
  Mul 1633 712 1568; Mul 1482 481 1565; Add 1633 1633 1482; Add 1187 1187 1633; Sub 1022 1022 1187;
  Mul 1187 719 1413; Mul 1633 519 1617; Add 1187 1187 1633; Mul 1633 709 1576; Mul 1126 216 1126;
  Mul 1482 348 1430; Sub 1126 1126 1482; Mul 1034 215 1034; Mul 1482 353 1674; Add 1034 1034 1482;
  Add 1126 1126 1034; Mul 1424 714 1424; Mul 1034 332 1491; Add 1424 1424 1034; Mul 1248 718 1248;
  Mul 1034 309 1462; Add 1248 1248 1034; Sub 1424 1424 1248; Add 1126 1126 1424; Mul 1424 706 1343;
  Mul 1248 497 1410; Add 1424 1424 1248; Mul 1248 712 1576; Mul 1034 494 1565; Add 1248 1248 1034;
  Sub 1424 1424 1248; Sub 1424 1126 1424; Mul 1424 156 1424; Mul 1248 494 1424; Add 1633 1633 1248;
  Sub 1187 1187 1633; Add 1022 1022 1187; Mul 1187 716 1500; Mul 1633 403 1367; Add 1187 1187 1633;
  Mul 1633 718 1143; Mul 1248 696 1462; Add 1034 1633 1248; Sub 1187 1187 1034; Mul 1034 714 1478;
  Mul 1482 797 1491; Add 1034 1034 1482; Sub 1187 1187 1034; Mul 1332 216 1332; Mul 1034 331 1430;
  Sub 1332 1332 1034; Mul 1034 215 1694; Mul 1482 414 1674; Add 1034 1034 1482; Sub 1034 1332 1034;
  Add 1187 1187 1034; Add 1022 1022 1187; Mul 1022 216 1022; Mul 1187 790 1430; Sub 1022 1022 1187;
  Mul 1187 704 1674; Mul 1034 677 1277; Mul 1482 513 1423; Add 1034 1034 1482; Mul 1482 706 1215;
  Mul 1457 483 1410; Add 1482 1482 1457; Mul 1457 712 1324; Mul 1673 782 1565].
Definition casadi_f0_753 : list instruction := [
  Add 1457 1457 1673; Add 1482 1482 1457; Sub 1034 1034 1482; Mul 1482 709 1343; Mul 1457 497 1424;
  Add 1482 1482 1457; Mul 1457 711 1413; Mul 1673 519 1104; Add 1457 1457 1673; Sub 1482 1482 1457;
  Add 1034 1034 1482; Mul 1482 716 1297; Mul 1457 293 1367; Add 1482 1482 1457; Mul 1457 718 1646;
  Mul 1673 415 1462; Add 1457 1457 1673; Sub 1482 1482 1457; Mul 1457 714 1442; Mul 1673 685 1491;
  Add 1656 1457 1673; Sub 1482 1482 1656; Mul 1656 216 1151; Mul 1483 416 1430; Sub 1656 1656 1483;
  Mul 1348 215 1348; Mul 1483 357 1674; Add 1134 1348 1483; Sub 1656 1656 1134; Add 1482 1482 1656;
  Add 1034 1034 1482; Mul 1034 215 1034; Add 1187 1187 1034; Sub 1034 1022 1187; Mul 1482 216 1558;
  Mul 1656 795 1430; Sub 1482 1482 1656; Mul 1442 215 1442; Mul 1656 685 1674; Add 1134 1442 1656;
  Sub 1482 1482 1134; Add 1617 1617 1482; Mul 1482 540 1617; Mul 1134 697 1654; Sub 1482 1482 1134;
  Mul 1134 695 1083; Mul 1143 216 1143; Mul 1412 696 1430; Sub 1143 1143 1412; Mul 1412 215 1555;
  Mul 1176 448 1674; Add 1412 1412 1176; Sub 1412 1143 1412; Add 1104 1104 1412; Mul 1412 544 1104;
  Add 1134 1134 1412; Add 1482 1482 1134; Sub 1482 1034 1482; Mul 1482 3 1482; Mul 1134 691 1625;
  Add 1482 1482 1134; Add 1582 1582 1482; Mul 1482 715 1139; Mul 1134 606 1473; Add 1482 1482 1134;
  Mul 1134 721 1691; Mul 1412 786 1494; Add 1134 1134 1412; Add 1482 1482 1134; Mul 1134 722 1335;
  Mul 1412 528 1406; Add 1134 1134 1412; Add 1482 1482 1134; Mul 1134 730 1109; Mul 1412 515 1185;
  Add 1134 1134 1412; Mul 1412 683 1164; Mul 1451 310 1451; Mul 1176 408 1319; Add 1451 1451 1176;
  Mul 1419 327 1419; Mul 1176 404 1421; Add 1419 1419 1176; Sub 1451 1451 1419; Mul 1638 731 1638;
  Mul 1419 363 1489; Add 1638 1638 1419; Mul 1166 725 1166; Mul 1419 387 1329; Add 1166 1166 1419;
  Sub 1638 1638 1166; Add 1451 1451 1638; Mul 1638 721 1164; Mul 1166 486 1494; Add 1638 1638 1166;
  Mul 1166 715 1167; Mul 1419 489 1473; Add 1166 1166 1419; Sub 1638 1638 1166; Sub 1638 1451 1638;
  Mul 1638 723 1638; Mul 1166 486 1638; Add 1412 1412 1166; Sub 1134 1134 1412; Add 1482 1482 1134;
  Mul 1134 725 1131; Mul 1412 800 1329; Add 1134 1134 1412; Mul 1412 731 1662; Mul 1166 703 1489;
  Add 1419 1412 1166; Mul 1176 727 1409; Mul 1400 306 1459; Add 1176 1176 1400; Add 1419 1419 1176;
  Add 1134 1134 1419; Mul 1419 310 1271; Mul 1176 361 1319; Add 1419 1419 1176; Mul 1548 327 1548;
  Mul 1176 386 1421; Add 1400 1548 1176; Mul 1308 318 1429; Mul 1440 59 1142; Add 1308 1308 1440;
  Add 1400 1400 1308; Add 1419 1419 1400; Sub 1134 1134 1419; Add 1482 1482 1134; Mul 1134 216 1482;
  Mul 1419 690 1430; Sub 1134 1134 1419; Mul 1419 807 1674; Mul 1400 715 1111; Mul 1308 705 1473;
  Add 1400 1400 1308; Mul 1308 721 1139; Mul 1440 606 1494; Add 1308 1308 1440; Add 1400 1400 1308;
  Mul 1308 722 1526; Mul 1440 510 1406; Add 1308 1308 1440; Add 1400 1400 1308; Mul 1308 683 1167;
  Mul 1440 489 1638; Add 1308 1308 1440; Mul 1440 726 1109; Mul 1295 515 1456].
Definition casadi_f0_754 : list instruction := [
  Add 1440 1440 1295; Sub 1308 1308 1440; Add 1400 1400 1308; Mul 1308 725 1327; Mul 1440 692 1329;
  Add 1295 1308 1440; Mul 1450 731 1627; Mul 1689 465 1489; Add 1450 1450 1689; Mul 1689 727 1156;
  Mul 1021 785 1459; Add 1689 1689 1021; Add 1450 1450 1689; Add 1295 1295 1450; Mul 1364 310 1364;
  Mul 1450 412 1319; Add 1689 1364 1450; Mul 1021 327 1351; Mul 1647 407 1421; Add 1021 1021 1647;
  Mul 1647 318 1113; Mul 1206 580 1142; Add 1647 1647 1206; Add 1021 1021 1647; Add 1689 1689 1021;
  Sub 1295 1295 1689; Add 1400 1400 1295; Mul 1295 215 1400; Add 1419 1419 1295; Sub 1295 1134 1419;
  Mul 1327 310 1327; Mul 1689 692 1319; Add 1021 1327 1689; Mul 1647 327 1591; Mul 1206 798 1421;
  Add 1647 1647 1206; Mul 1206 318 1509; Mul 1330 640 1142; Add 1206 1206 1330; Add 1647 1647 1206;
  Add 1021 1021 1647; Sub 1185 1185 1021; Mul 1021 540 1185; Mul 1647 811 1654; Sub 1021 1021 1647;
  Mul 1647 813 1083; Mul 1206 310 1537; Mul 1330 464 1319; Add 1206 1206 1330; Mul 1662 327 1662;
  Mul 1330 703 1421; Add 1677 1662 1330; Mul 1200 318 1608; Mul 1042 662 1142; Add 1200 1200 1042;
  Add 1677 1677 1200; Add 1206 1206 1677; Sub 1456 1456 1206; Mul 1206 544 1456; Add 1647 1647 1206;
  Add 1021 1021 1647; Sub 1021 1295 1021; Mul 1021 4 1021; Mul 1647 812 1538; Add 1021 1021 1647;
  Add 1582 1582 1021; Mul 1021 728 1193; Mul 1647 609 1159; Add 1021 1021 1647; Mul 1647 733 1315;
  Mul 1206 604 1287; Add 1647 1647 1206; Add 1021 1021 1647; Mul 1647 734 1665; Mul 1206 426 1427;
  Add 1647 1647 1206; Add 1021 1021 1647; Mul 1647 739 1402; Mul 1206 438 1234; Add 1647 1647 1206;
  Mul 1206 816 1506; Mul 1552 358 1552; Mul 1677 462 1133; Add 1552 1552 1677; Mul 1525 372 1525;
  Mul 1677 458 1230; Add 1525 1525 1677; Sub 1552 1552 1525; Mul 1389 741 1389; Mul 1525 417 1079;
  Add 1389 1389 1525; Mul 1432 736 1432; Mul 1525 441 1352; Add 1432 1432 1525; Sub 1389 1389 1432;
  Add 1552 1552 1389; Mul 1389 733 1506; Mul 1432 445 1287; Add 1389 1389 1432; Mul 1432 728 1110;
  Mul 1525 434 1159; Add 1432 1432 1525; Sub 1389 1389 1432; Sub 1552 1552 1389; Mul 1552 430 1552;
  Mul 1389 445 1552; Add 1206 1206 1389; Sub 1647 1647 1206; Add 1021 1021 1647; Mul 1647 736 1180;
  Mul 1206 803 1352; Add 1647 1647 1206; Mul 1206 741 1019; Mul 1389 710 1079; Add 1432 1206 1389;
  Mul 1525 738 1386; Mul 1677 356 1242; Add 1525 1525 1677; Add 1432 1432 1525; Add 1647 1647 1432;
  Mul 1432 358 1313; Mul 1525 352 1133; Add 1432 1432 1525; Mul 1388 372 1388; Mul 1525 440 1230;
  Add 1677 1388 1525; Mul 1200 369 1664; Mul 1042 36 1279; Add 1200 1200 1042; Add 1677 1677 1200;
  Add 1432 1432 1677; Sub 1647 1647 1432; Add 1021 1021 1647; Mul 1647 216 1021; Mul 1432 814 1430;
  Sub 1647 1647 1432; Mul 1432 817 1674; Mul 1159 13 1159; Mul 1677 728 1376; Sub 1159 1159 1677;
  Mul 1677 733 1193; Mul 1287 609 1287; Add 1677 1677 1287; Add 1159 1159 1677; Mul 1677 734 1692;
  Mul 1427 443 1427; Add 1677 1677 1427; Add 1159 1159 1677; Mul 1677 816 1110].
Definition casadi_f0_755 : list instruction := [
  Mul 1427 434 1552; Add 1677 1677 1427; Mul 1427 735 1402; Mul 1287 438 1089; Add 1427 1427 1287;
  Sub 1677 1677 1427; Add 1159 1159 1677; Mul 1677 736 1417; Mul 1427 699 1352; Add 1287 1677 1427;
  Mul 1200 741 1640; Mul 1042 394 1079; Add 1200 1200 1042; Mul 1042 738 1102; Mul 1697 245 1242;
  Add 1042 1042 1697; Add 1200 1200 1042; Add 1287 1287 1200; Mul 1261 358 1261; Mul 1200 466 1133;
  Add 1042 1261 1200; Mul 1697 372 1589; Mul 1096 359 1230; Add 1697 1697 1096; Mul 1096 369 1475;
  Mul 1150 593 1279; Add 1096 1096 1150; Add 1697 1697 1096; Add 1042 1042 1697; Sub 1287 1287 1042;
  Add 1159 1159 1287; Mul 1287 215 1159; Add 1432 1432 1287; Sub 1287 1647 1432; Mul 1417 358 1417;
  Mul 1042 699 1133; Add 1697 1417 1042; Mul 1096 372 1398; Mul 1150 801 1230; Add 1096 1096 1150;
  Mul 1150 369 1135; Mul 1209 645 1279; Add 1150 1150 1209; Add 1096 1096 1150; Add 1697 1697 1096;
  Sub 1234 1234 1697; Mul 1697 540 1234; Mul 1096 820 1654; Sub 1697 1697 1096; Mul 1096 822 1083;
  Mul 1150 358 1093; Mul 1209 457 1133; Add 1150 1150 1209; Mul 1019 372 1019; Mul 1209 710 1230;
  Add 1539 1019 1209; Mul 1547 369 1588; Mul 1086 666 1279; Add 1547 1547 1086; Add 1539 1539 1547;
  Add 1150 1150 1539; Sub 1089 1089 1150; Mul 1150 544 1089; Add 1096 1096 1150; Add 1697 1697 1096;
  Sub 1697 1287 1697; Mul 1697 5 1697; Mul 1096 821 1309; Add 1697 1697 1096; Add 1582 1582 1697;
  Mul 1344 85 1344; Mul 1284 79 1284; Sub 1344 1344 1284; Mul 1377 54 1377; Mul 1518 61 1518;
  Sub 1377 1377 1518; Mul 1704 19 1704; Mul 1518 763 1269; Sub 1704 1704 1518; Mul 1518 751 1062;
  Mul 1521 35 1521; Add 1518 1518 1521; Sub 1704 1704 1518; Mul 1705 55 1705; Mul 1636 62 1636;
  Sub 1705 1705 1636; Add 1704 1704 1705; Add 1377 1377 1704; Mul 1210 86 1210; Mul 1371 91 1371;
  Sub 1210 1210 1371; Add 1210 1377 1210; Add 1344 1344 1210; Mul 1288 102 1288; Sub 1288 1344 1288;
  Mul 1345 101 1345; Add 1288 1288 1345; Add 1582 1582 1288; Mul 1288 777 1582; Sub 1533 1533 1288;
  Add 1514 1514 1533; Div 1533 1395 92; Mul 1288 1023 1201; Sub 1533 1533 1288; Mul 1288 767 1533;
  Mul 1445 674 1445; Mul 1345 630 1384; Sub 1445 1445 1345; Mul 1345 654 1487; Mul 1680 680 1680;
  Add 1345 1345 1680; Add 1563 1563 1296; Sub 1345 1345 1563; Add 1445 1445 1345; Mul 1345 615 1674;
  Mul 1246 215 1246; Add 1345 1345 1246; Mul 1060 216 1060; Mul 1246 7 1430; Sub 1060 1060 1246;
  Sub 1345 1345 1060; Add 1445 1445 1345; Mul 1445 0 1445; Mul 1345 771 1651; Add 1445 1445 1345;
  Mul 1345 748 1018; Mul 1060 216 1347; Mul 1246 523 1430; Sub 1060 1060 1246; Add 1060 1384 1060;
  Mul 1060 672 1060; Mul 1246 545 1060; Sub 1345 1345 1246; Mul 1246 216 1556; Mul 1563 502 1430;
  Sub 1246 1246 1563; Mul 1563 215 1655; Mul 1296 505 1674; Add 1563 1563 1296; Add 1246 1246 1563;
  Sub 1246 1246 1121; Mul 1246 672 1246; Mul 1563 504 1246; Mul 1296 750 1081; Add 1563 1563 1296;
  Mul 1296 215 1347; Mul 1680 523 1674; Add 1296 1296 1680; Sub 1296 1487 1296].
Definition casadi_f0_756 : list instruction := [
  Mul 1296 672 1296; Mul 1680 541 1296; Mul 1210 627 1300; Add 1680 1680 1210; Sub 1563 1563 1680;
  Add 1345 1345 1563; Mul 1698 215 1698; Mul 1563 517 1674; Add 1698 1698 1563; Mul 1524 216 1524;
  Mul 1563 532 1430; Sub 1524 1524 1563; Sub 1698 1698 1524; Mul 1524 627 1556; Mul 1563 502 1296;
  Add 1524 1524 1563; Mul 1563 748 1655; Mul 1680 505 1060; Sub 1563 1563 1680; Sub 1524 1524 1563;
  Add 1698 1698 1524; Mul 1698 508 1698; Mul 1524 744 1549; Add 1698 1698 1524; Mul 1524 215 1256;
  Mul 1563 783 1674; Add 1524 1524 1563; Mul 1162 216 1162; Mul 1563 488 1430; Sub 1162 1162 1563;
  Sub 1524 1524 1162; Mul 1162 748 1347; Mul 1060 523 1060; Sub 1162 1162 1060; Mul 1556 750 1556;
  Mul 1060 502 1246; Add 1556 1556 1060; Sub 1162 1162 1556; Add 1524 1524 1162; Mul 1524 536 1524;
  Mul 1162 824 1223; Add 1524 1524 1162; Sub 1698 1698 1524; Mul 1211 215 1211; Mul 1524 491 1674;
  Add 1211 1211 1524; Mul 1256 216 1256; Mul 1524 783 1430; Sub 1256 1256 1524; Sub 1211 1211 1256;
  Mul 1655 750 1655; Mul 1246 505 1246; Add 1655 1655 1246; Mul 1347 627 1347; Mul 1296 523 1296;
  Add 1347 1347 1296; Sub 1655 1655 1347; Add 1211 1211 1655; Mul 1211 526 1211; Mul 1655 825 1091;
  Add 1211 1211 1655; Sub 1698 1698 1211; Add 1345 1345 1698; Mul 1391 674 1391; Mul 1698 792 1384;
  Sub 1391 1391 1698; Add 1557 1557 1074; Mul 1074 298 1121; Sub 1455 1455 1486; Sub 1165 1165 1030;
  Sub 1380 1380 1431; Sub 1219 1219 1522; Add 1380 1380 1219; Add 1165 1165 1380; Add 1455 1455 1165;
  Mul 1522 676 1455; Add 1074 1074 1522; Sub 1557 1557 1074; Add 1391 1391 1557; Mul 1557 468 1674;
  Mul 1369 215 1369; Add 1557 1557 1369; Sub 1557 1557 1363; Add 1391 1391 1557; Mul 1391 216 1391;
  Mul 1557 823 1430; Sub 1391 1391 1557; Mul 1557 686 1487; Mul 1444 680 1444; Add 1557 1557 1444;
  Mul 1444 232 1121; Add 1157 1157 1350; Add 1037 1037 1657; Add 1679 1679 1688; Add 1119 1119 1484;
  Add 1679 1679 1119; Add 1037 1037 1679; Add 1157 1157 1037; Mul 1484 676 1157; Add 1444 1444 1484;
  Sub 1557 1557 1444; Add 1573 1573 1557; Add 1173 1173 1346; Mul 1355 216 1355; Mul 1346 461 1430;
  Sub 1355 1355 1346; Sub 1173 1173 1355; Add 1573 1573 1173; Mul 1573 215 1573; Mul 1173 668 1674;
  Add 1573 1573 1173; Sub 1391 1391 1573; Add 1189 1189 1426; Mul 1099 216 1099; Mul 1426 794 1430;
  Sub 1099 1099 1426; Sub 1189 1189 1099; Mul 1189 540 1189; Mul 1099 664 1654; Sub 1189 1189 1099;
  Mul 1099 808 1674; Mul 1289 215 1289; Add 1099 1099 1289; Sub 1099 1099 1229; Mul 1099 544 1099;
  Mul 1229 642 1083; Add 1099 1099 1229; Add 1189 1189 1099; Sub 1391 1391 1189; Add 1345 1345 1391;
  Mul 1345 1 1345; Mul 1391 760 1492; Add 1345 1345 1391; Add 1445 1445 1345; Mul 1541 674 1541;
  Mul 1345 233 1384; Sub 1541 1541 1345; Mul 1345 789 1487; Mul 1194 680 1194; Add 1345 1345 1194;
  Mul 1194 637 1121; Mul 1157 215 1157; Mul 1391 232 1674; Add 1157 1157 1391; Mul 1455 216 1455;
  Mul 1391 298 1430; Sub 1455 1455 1391; Sub 1157 1157 1455; Add 1325 1325 1157].
Definition casadi_f0_757 : list instruction := [
  Mul 1325 676 1325; Add 1194 1194 1325; Sub 1345 1345 1194; Add 1541 1541 1345; Sub 1703 1703 1648;
  Add 1541 1541 1703; Mul 1541 2 1541; Mul 1703 826 1650; Add 1541 1541 1703; Add 1445 1445 1541;
  Mul 1541 674 1617; Mul 1703 697 1384; Sub 1541 1541 1703; Mul 1703 695 1487; Mul 1648 680 1104;
  Add 1703 1703 1648; Mul 1648 647 1121; Mul 1345 216 1165; Mul 1194 411 1430; Sub 1345 1345 1194;
  Mul 1194 215 1037; Mul 1325 302 1674; Add 1194 1194 1325; Sub 1345 1345 1194; Add 1424 1424 1345;
  Mul 1345 676 1424; Add 1648 1648 1345; Sub 1703 1703 1648; Add 1541 1541 1703; Sub 1187 1187 1022;
  Add 1541 1541 1187; Mul 1541 3 1541; Mul 1187 347 1625; Add 1541 1541 1187; Add 1445 1445 1541;
  Mul 1541 674 1185; Mul 1187 811 1384; Sub 1541 1541 1187; Mul 1187 813 1487; Mul 1022 680 1456;
  Add 1187 1187 1022; Mul 1022 802 1121; Mul 1703 310 1679; Mul 1648 252 1319; Add 1703 1703 1648;
  Mul 1648 327 1380; Mul 1345 339 1421; Add 1648 1648 1345; Mul 1447 318 1447; Mul 1345 701 1142;
  Add 1194 1447 1345; Add 1648 1648 1194; Add 1703 1703 1648; Sub 1638 1638 1703; Mul 1703 676 1638;
  Add 1022 1022 1703; Sub 1187 1187 1022; Add 1541 1541 1187; Sub 1419 1419 1134; Add 1541 1541 1419;
  Mul 1541 4 1541; Mul 1419 698 1538; Add 1541 1541 1419; Add 1445 1445 1541; Mul 1541 674 1234;
  Mul 1419 820 1384; Sub 1541 1541 1419; Mul 1419 822 1487; Mul 1134 680 1089; Add 1419 1419 1134;
  Mul 1134 788 1121; Mul 1187 358 1119; Mul 1022 234 1133; Add 1187 1187 1022; Mul 1022 372 1219;
  Mul 1703 355 1230; Add 1022 1022 1703; Mul 1353 369 1353; Mul 1703 708 1279; Add 1648 1353 1703;
  Add 1022 1022 1648; Add 1187 1187 1022; Sub 1552 1552 1187; Mul 1187 676 1552; Add 1134 1134 1187;
  Sub 1419 1419 1134; Add 1541 1541 1419; Sub 1432 1432 1647; Add 1541 1541 1432; Mul 1541 5 1541;
  Mul 1432 809 1309; Add 1541 1541 1432; Add 1445 1445 1541; Sub 1344 1344 1445; Mul 1445 778 1344;
  Add 1288 1288 1445; Sub 1514 1514 1288; Div 1288 1222 92; Mul 1445 1516 1201; Sub 1288 1288 1445;
  Mul 1445 775 1288; Add 1374 1374 1449; Mul 1449 658 1462; Mul 1466 718 1466; Add 1449 1449 1466;
  Sub 1374 1374 1449; Mul 1449 635 1491; Mul 1574 714 1574; Add 1449 1449 1574; Sub 1374 1374 1449;
  Mul 1695 216 1695; Mul 1449 90 1430; Sub 1695 1695 1449; Mul 1449 566 1674; Mul 1641 215 1641;
  Add 1449 1449 1641; Sub 1695 1695 1449; Add 1374 1374 1695; Mul 1374 0 1374; Mul 1695 818 1651;
  Add 1374 1374 1695; Mul 1695 216 1413; Mul 1449 519 1430; Sub 1695 1695 1449; Sub 1695 1695 1491;
  Mul 1695 156 1695; Mul 1449 545 1695; Mul 1641 684 1018; Add 1449 1449 1641; Mul 1641 216 1576;
  Mul 1574 494 1430; Sub 1641 1641 1574; Mul 1574 215 1343; Mul 1466 497 1674; Add 1574 1574 1466;
  Add 1641 1641 1574; Sub 1641 1367 1641; Mul 1641 156 1641; Mul 1574 504 1641; Mul 1466 660 1081;
  Add 1574 1574 1466; Mul 1466 215 1413; Mul 1541 519 1674; Add 1466 1466 1541; Sub 1466 1466 1462;
  Mul 1466 156 1466; Mul 1541 541 1466; Mul 1432 827 1300; Add 1541 1541 1432].
Definition casadi_f0_758 : list instruction := [
  Sub 1574 1574 1541; Add 1449 1449 1574; Mul 1278 216 1278; Mul 1574 530 1430; Sub 1278 1278 1574;
  Mul 1277 215 1277; Mul 1574 513 1674; Add 1277 1277 1574; Sub 1278 1278 1277; Mul 1277 827 1576;
  Mul 1574 494 1466; Add 1277 1277 1574; Mul 1574 684 1343; Mul 1541 497 1695; Add 1574 1574 1541;
  Sub 1277 1277 1574; Add 1278 1278 1277; Mul 1277 508 1278; Mul 1574 656 1549; Add 1277 1277 1574;
  Mul 1568 216 1568; Mul 1574 481 1430; Sub 1568 1568 1574; Mul 1574 215 1324; Mul 1541 782 1674;
  Add 1574 1574 1541; Sub 1568 1568 1574; Mul 1574 684 1413; Mul 1541 519 1695; Add 1574 1574 1541;
  Mul 1576 660 1576; Mul 1541 494 1641; Add 1576 1576 1541; Sub 1574 1574 1576; Add 1568 1568 1574;
  Mul 1574 536 1568; Mul 1576 829 1223; Add 1574 1574 1576; Sub 1277 1277 1574; Mul 1324 216 1324;
  Mul 1574 782 1430; Sub 1324 1324 1574; Mul 1215 215 1215; Mul 1574 483 1674; Add 1215 1215 1574;
  Sub 1324 1324 1215; Mul 1343 660 1343; Mul 1215 497 1641; Add 1343 1343 1215; Mul 1413 827 1413;
  Mul 1215 519 1466; Add 1413 1413 1215; Sub 1343 1343 1413; Add 1324 1324 1343; Mul 1343 526 1324;
  Mul 1413 830 1091; Add 1343 1343 1413; Sub 1277 1277 1343; Add 1449 1449 1277; Mul 1277 411 1367;
  Mul 1165 716 1165; Add 1277 1277 1165; Add 1248 1248 1633; Sub 1277 1277 1248; Mul 1248 795 1491;
  Mul 1558 714 1558; Add 1248 1248 1558; Sub 1277 1277 1248; Mul 1248 416 1674; Mul 1151 215 1151;
  Add 1248 1248 1151; Sub 1332 1332 1248; Add 1277 1277 1332; Mul 1277 216 1277; Mul 1332 828 1430;
  Sub 1277 1277 1332; Mul 1332 302 1367; Mul 1037 716 1037; Add 1332 1332 1037; Mul 1037 448 1462;
  Mul 1555 718 1555; Add 1037 1037 1555; Sub 1332 1332 1037; Add 1673 1673 1457; Sub 1332 1332 1673;
  Mul 1694 216 1694; Mul 1673 414 1430; Sub 1694 1694 1673; Add 1483 1483 1348; Sub 1694 1694 1483;
  Add 1332 1332 1694; Mul 1332 215 1332; Mul 1694 832 1674; Add 1332 1332 1694; Sub 1694 1277 1332;
  Mul 1478 216 1478; Mul 1483 797 1430; Sub 1478 1478 1483; Add 1656 1656 1442; Sub 1478 1478 1656;
  Mul 1656 540 1478; Mul 1442 835 1654; Sub 1656 1656 1442; Mul 1442 415 1674; Mul 1646 215 1646;
  Add 1442 1442 1646; Sub 1143 1143 1442; Mul 1442 544 1143; Mul 1646 837 1083; Add 1442 1442 1646;
  Add 1656 1656 1442; Sub 1694 1694 1656; Add 1449 1449 1694; Mul 1449 1 1449; Mul 1694 632 1492;
  Add 1449 1449 1694; Add 1374 1374 1449; Mul 1695 678 1695; Mul 1449 684 1564; Add 1695 1695 1449;
  Mul 1466 673 1466; Mul 1449 827 1228; Add 1466 1466 1449; Mul 1641 799 1641; Mul 1449 660 1488;
  Add 1641 1641 1449; Add 1466 1466 1641; Add 1695 1695 1466; Mul 1324 602 1324; Mul 1466 830 1631;
  Add 1324 1324 1466; Mul 1568 670 1568; Mul 1466 829 1203; Add 1568 1568 1466; Mul 1278 671 1278;
  Mul 1466 656 1602; Add 1278 1278 1466; Sub 1568 1568 1278; Add 1324 1324 1568; Add 1695 1695 1324;
  Mul 1478 674 1478; Mul 1324 835 1384; Sub 1478 1478 1324; Mul 1143 680 1143; Mul 1324 837 1487;
  Add 1143 1143 1324; Mul 1500 216 1500; Mul 1324 403 1430; Sub 1500 1500 1324].
Definition casadi_f0_759 : list instruction := [
  Mul 1324 293 1674; Mul 1297 215 1297; Add 1324 1324 1297; Sub 1500 1500 1324; Mul 1500 676 1500;
  Mul 1324 839 1121; Add 1500 1500 1324; Sub 1143 1143 1500; Add 1478 1478 1143; Sub 1332 1332 1277;
  Add 1478 1478 1332; Add 1695 1695 1478; Mul 1695 2 1695; Mul 1478 834 1650; Add 1695 1695 1478;
  Add 1374 1374 1695; Mul 1695 647 1367; Mul 1424 716 1424; Add 1695 1695 1424; Mul 1424 695 1462;
  Mul 1104 718 1104; Add 1424 1424 1104; Sub 1695 1695 1424; Mul 1424 697 1491; Mul 1617 714 1617;
  Add 1424 1424 1617; Sub 1695 1695 1424; Add 1695 1695 1034; Mul 1695 3 1695; Mul 1034 836 1625;
  Add 1695 1695 1034; Add 1374 1374 1695; Mul 1695 802 1367; Mul 1034 716 1638; Add 1695 1695 1034;
  Mul 1034 813 1462; Mul 1424 718 1456; Add 1034 1034 1424; Sub 1695 1695 1034; Mul 1034 811 1491;
  Mul 1424 714 1185; Add 1034 1034 1424; Sub 1695 1695 1034; Add 1695 1695 1295; Mul 1695 4 1695;
  Mul 1295 702 1538; Add 1695 1695 1295; Add 1374 1374 1695; Mul 1695 788 1367; Mul 1295 716 1552;
  Add 1695 1695 1295; Mul 1295 822 1462; Mul 1034 718 1089; Add 1295 1295 1034; Sub 1695 1695 1295;
  Mul 1295 820 1491; Mul 1034 714 1234; Add 1295 1295 1034; Sub 1695 1695 1295; Add 1695 1695 1287;
  Mul 1695 5 1695; Mul 1287 810 1309; Add 1695 1695 1287; Add 1374 1374 1695; Add 1374 1374 1377;
  Mul 1377 769 1374; Sub 1445 1445 1377; Add 1514 1514 1445; Div 1445 1259 92; Mul 1377 1637 1201;
  Sub 1445 1445 1377; Mul 1377 815 1445; Mul 1695 640 1329; Mul 1509 725 1509; Add 1695 1695 1509;
  Mul 1509 662 1489; Mul 1608 731 1608; Add 1509 1509 1608; Add 1358 1358 1305; Add 1509 1509 1358;
  Add 1695 1695 1509; Mul 1509 580 1319; Mul 1113 310 1113; Add 1509 1509 1113; Mul 1113 59 1421;
  Mul 1429 327 1429; Add 1113 1113 1429; Add 1182 1182 1493; Add 1113 1113 1182; Add 1509 1509 1113;
  Sub 1695 1695 1509; Mul 1695 0 1695; Mul 1509 819 1651; Add 1695 1695 1509; Mul 1509 327 1109;
  Mul 1113 515 1421; Add 1509 1509 1113; Mul 1113 318 1167; Mul 1182 489 1142; Add 1113 1113 1182;
  Sub 1509 1509 1113; Sub 1509 1329 1509; Mul 1509 723 1509; Mul 1113 545 1509; Mul 1182 831 1018;
  Add 1113 1113 1182; Mul 1182 310 1167; Mul 1493 489 1319; Add 1182 1182 1493; Mul 1493 327 1164;
  Mul 1429 486 1421; Add 1493 1493 1429; Sub 1182 1182 1493; Sub 1182 1459 1182; Mul 1182 723 1182;
  Mul 1493 504 1182; Mul 1429 840 1081; Add 1493 1493 1429; Mul 1429 318 1164; Mul 1358 486 1142;
  Add 1429 1429 1358; Mul 1358 310 1109; Mul 1305 515 1319; Add 1358 1358 1305; Sub 1429 1429 1358;
  Sub 1429 1489 1429; Mul 1429 723 1429; Mul 1358 541 1429; Mul 1305 842 1300; Add 1358 1358 1305;
  Sub 1493 1493 1358; Add 1113 1113 1493; Mul 1493 842 1164; Mul 1358 486 1429; Add 1493 1493 1358;
  Mul 1358 831 1167; Mul 1305 489 1509; Add 1358 1358 1305; Sub 1493 1493 1358; Mul 1358 310 1526;
  Mul 1305 510 1319; Add 1358 1358 1305; Mul 1305 327 1335; Mul 1608 528 1421; Add 1305 1305 1608;
  Add 1358 1358 1305; Mul 1396 318 1396; Mul 1305 479 1142; Add 1396 1396 1305].
Definition casadi_f0_760 : list instruction := [
  Add 1358 1358 1396; Sub 1493 1493 1358; Mul 1358 508 1493; Mul 1396 841 1549; Add 1358 1358 1396;
  Mul 1396 831 1109; Mul 1305 515 1509; Add 1396 1396 1305; Mul 1164 840 1164; Mul 1305 486 1182;
  Add 1164 1164 1305; Sub 1396 1396 1164; Mul 1164 310 1139; Mul 1305 606 1319; Add 1164 1164 1305;
  Mul 1691 327 1691; Mul 1305 786 1421; Add 1691 1691 1305; Add 1164 1164 1691; Mul 1335 318 1335;
  Mul 1691 528 1142; Add 1335 1335 1691; Add 1164 1164 1335; Sub 1396 1396 1164; Mul 1164 536 1396;
  Mul 1335 844 1223; Add 1164 1164 1335; Sub 1358 1358 1164; Mul 1167 840 1167; Mul 1164 489 1182;
  Add 1167 1167 1164; Mul 1109 842 1109; Mul 1164 515 1429; Add 1109 1109 1164; Sub 1167 1167 1109;
  Mul 1111 310 1111; Mul 1109 705 1319; Add 1111 1111 1109; Mul 1139 327 1139; Mul 1109 606 1421;
  Add 1139 1139 1109; Add 1111 1111 1139; Mul 1526 318 1526; Mul 1139 510 1142; Add 1526 1526 1139;
  Add 1111 1111 1526; Sub 1167 1167 1111; Mul 1111 526 1167; Mul 1526 845 1091; Add 1111 1111 1526;
  Sub 1358 1358 1111; Add 1113 1113 1358; Add 1689 1689 1327; Mul 1327 800 1421; Mul 1131 327 1131;
  Add 1327 1327 1131; Mul 1131 643 1142; Mul 1140 318 1140; Add 1131 1131 1140; Add 1327 1327 1131;
  Add 1689 1689 1327; Mul 1327 540 1689; Mul 1131 843 1654; Sub 1327 1327 1131; Mul 1131 465 1319;
  Mul 1627 310 1627; Add 1131 1131 1627; Add 1330 1330 1662; Mul 1662 665 1142; Mul 1244 318 1244;
  Add 1662 1662 1244; Add 1330 1330 1662; Add 1131 1131 1330; Mul 1330 544 1131; Mul 1662 847 1083;
  Add 1330 1330 1662; Add 1327 1327 1330; Mul 1330 798 1329; Mul 1591 725 1591; Add 1330 1330 1591;
  Add 1166 1166 1412; Mul 1412 339 1459; Mul 1380 727 1380; Add 1412 1412 1380; Add 1166 1166 1412;
  Add 1330 1330 1166; Mul 1166 407 1319; Mul 1351 310 1351; Add 1166 1166 1351; Add 1176 1176 1548;
  Mul 1548 595 1142; Mul 1469 318 1469; Add 1548 1548 1469; Add 1176 1176 1548; Add 1166 1166 1176;
  Sub 1330 1330 1166; Mul 1330 216 1330; Mul 1166 848 1430; Sub 1330 1330 1166; Add 1440 1440 1308;
  Mul 1308 464 1489; Mul 1537 731 1537; Add 1308 1308 1537; Mul 1537 252 1459; Mul 1679 727 1679;
  Add 1537 1537 1679; Add 1308 1308 1537; Add 1440 1440 1308; Add 1450 1450 1364; Mul 1364 361 1421;
  Mul 1271 327 1271; Add 1364 1364 1271; Mul 1271 620 1142; Mul 1507 318 1507; Add 1271 1271 1507;
  Add 1364 1364 1271; Add 1450 1450 1364; Sub 1440 1440 1450; Mul 1440 215 1440; Mul 1450 850 1674;
  Add 1440 1440 1450; Sub 1450 1330 1440; Add 1327 1327 1450; Add 1113 1113 1327; Mul 1113 1 1113;
  Mul 1327 838 1492; Add 1113 1113 1327; Add 1695 1695 1113; Mul 1113 678 1509; Mul 1327 831 1564;
  Add 1113 1113 1327; Mul 1327 673 1429; Mul 1364 842 1228; Add 1327 1327 1364; Mul 1364 799 1182;
  Mul 1271 840 1488; Add 1364 1364 1271; Add 1327 1327 1364; Add 1113 1113 1327; Mul 1327 602 1167;
  Mul 1364 845 1631; Add 1327 1327 1364; Mul 1364 670 1396; Mul 1271 844 1203; Add 1364 1364 1271;
  Mul 1271 671 1493; Mul 1507 841 1602; Add 1271 1271 1507; Sub 1364 1364 1271].
Definition casadi_f0_761 : list instruction := [
  Add 1327 1327 1364; Add 1113 1113 1327; Mul 1327 785 1319; Mul 1156 310 1156; Add 1327 1327 1156;
  Mul 1156 306 1421; Mul 1409 327 1409; Add 1156 1156 1409; Add 1345 1345 1447; Add 1156 1156 1345;
  Add 1327 1327 1156; Mul 1156 676 1327; Mul 1345 853 1121; Add 1156 1156 1345; Mul 1345 680 1131;
  Mul 1447 847 1487; Add 1345 1345 1447; Sub 1156 1156 1345; Mul 1345 674 1689; Mul 1447 843 1384;
  Sub 1345 1345 1447; Sub 1156 1156 1345; Sub 1440 1440 1330; Add 1156 1156 1440; Add 1113 1113 1156;
  Mul 1113 2 1113; Mul 1156 846 1650; Add 1113 1113 1156; Add 1695 1695 1113; Mul 1509 717 1509;
  Mul 1113 831 1499; Add 1509 1509 1113; Mul 1182 787 1182; Mul 1113 840 1126; Add 1182 1182 1113;
  Mul 1429 713 1429; Mul 1113 842 1237; Add 1429 1429 1113; Sub 1182 1182 1429; Add 1509 1509 1182;
  Mul 1493 677 1493; Mul 1182 841 1423; Add 1493 1493 1182; Mul 1396 712 1396; Mul 1182 844 1565;
  Add 1396 1396 1182; Sub 1493 1493 1396; Mul 1167 706 1167; Mul 1396 845 1410; Add 1167 1167 1396;
  Sub 1493 1493 1167; Add 1509 1509 1493; Mul 1689 714 1689; Mul 1493 843 1491; Add 1689 1689 1493;
  Mul 1131 718 1131; Mul 1493 847 1462; Add 1131 1131 1493; Mul 1327 716 1327; Mul 1493 853 1367;
  Add 1327 1327 1493; Sub 1131 1131 1327; Add 1689 1689 1131; Add 1689 1689 1450; Add 1509 1509 1689;
  Mul 1509 3 1509; Mul 1689 854 1625; Add 1509 1509 1689; Add 1695 1695 1509; Mul 1509 811 1329;
  Mul 1185 725 1185; Add 1509 1509 1185; Mul 1185 813 1489; Mul 1456 731 1456; Add 1185 1185 1456;
  Mul 1456 802 1459; Mul 1638 727 1638; Add 1456 1456 1638; Add 1185 1185 1456; Add 1509 1509 1185;
  Mul 1185 807 1319; Mul 1400 310 1400; Add 1185 1185 1400; Mul 1400 690 1421; Mul 1482 327 1482;
  Add 1400 1400 1482; Mul 1482 720 1142; Mul 1510 318 1510; Add 1482 1482 1510; Add 1400 1400 1482;
  Add 1185 1185 1400; Sub 1509 1509 1185; Mul 1509 4 1509; Mul 1185 851 1538; Add 1509 1509 1185;
  Add 1695 1695 1509; Mul 1509 820 1329; Mul 1185 725 1234; Add 1509 1509 1185; Mul 1185 822 1489;
  Mul 1400 731 1089; Add 1185 1185 1400; Mul 1400 788 1459; Mul 1482 727 1552; Add 1400 1400 1482;
  Add 1185 1185 1400; Add 1509 1509 1185; Mul 1185 817 1319; Mul 1400 310 1159; Add 1185 1185 1400;
  Mul 1400 814 1421; Mul 1482 327 1021; Add 1400 1400 1482; Mul 1482 732 1142; Mul 1510 318 1701;
  Add 1482 1482 1510; Add 1400 1400 1482; Add 1185 1185 1400; Sub 1509 1509 1185; Mul 1509 5 1509;
  Mul 1185 852 1309; Add 1509 1509 1185; Add 1695 1695 1509; Sub 1221 1221 1695; Mul 1695 761 1221;
  Add 1377 1377 1695; Add 1514 1514 1377; Div 1377 1635 92; Mul 1695 1619 1201; Sub 1377 1377 1695;
  Mul 1695 833 1377; Mul 1509 645 1352; Mul 1135 736 1135; Add 1509 1509 1135; Mul 1135 666 1079;
  Mul 1588 741 1588; Add 1135 1135 1588; Add 1681 1681 1443; Add 1135 1135 1681; Add 1509 1509 1135;
  Mul 1135 593 1133; Mul 1475 358 1475; Add 1135 1135 1475; Mul 1475 36 1230; Mul 1664 372 1664;
  Add 1475 1475 1664; Add 1365 1365 1422; Add 1475 1475 1365; Add 1135 1135 1475].
Definition casadi_f0_762 : list instruction := [
  Sub 1509 1509 1135; Mul 1135 0 1509; Mul 1651 849 1651; Add 1135 1135 1651; Mul 1651 372 1402;
  Mul 1475 438 1230; Add 1651 1651 1475; Mul 1475 369 1110; Mul 1365 434 1279; Add 1475 1475 1365;
  Sub 1651 1651 1475; Sub 1651 1352 1651; Mul 1651 430 1651; Mul 1475 545 1651; Mul 1018 856 1018;
  Add 1475 1475 1018; Mul 1018 358 1110; Mul 1365 434 1133; Add 1018 1018 1365; Mul 1365 372 1506;
  Mul 1422 445 1230; Add 1365 1365 1422; Sub 1018 1018 1365; Sub 1018 1242 1018; Mul 1018 430 1018;
  Mul 1365 504 1018; Mul 1081 858 1081; Add 1365 1365 1081; Mul 1081 369 1506; Mul 1422 445 1279;
  Add 1081 1081 1422; Mul 1422 358 1402; Mul 1664 438 1133; Add 1422 1422 1664; Sub 1081 1081 1422;
  Sub 1081 1079 1081; Mul 1081 430 1081; Mul 1422 541 1081; Mul 1300 860 1300; Add 1422 1422 1300;
  Sub 1365 1365 1422; Add 1475 1475 1365; Mul 1365 860 1506; Mul 1422 445 1081; Add 1365 1365 1422;
  Mul 1422 856 1110; Mul 1300 434 1651; Add 1422 1422 1300; Sub 1365 1365 1422; Mul 1422 358 1692;
  Mul 1300 443 1133; Add 1422 1422 1300; Mul 1300 372 1665; Mul 1664 426 1230; Add 1300 1300 1664;
  Add 1422 1422 1300; Mul 1642 369 1642; Mul 1300 478 1279; Add 1642 1642 1300; Add 1422 1422 1642;
  Sub 1365 1365 1422; Mul 1422 508 1365; Mul 1549 859 1549; Add 1422 1422 1549; Mul 1549 856 1402;
  Mul 1642 438 1651; Add 1549 1549 1642; Mul 1506 858 1506; Mul 1642 445 1018; Add 1506 1506 1642;
  Sub 1549 1549 1506; Mul 1506 358 1193; Mul 1642 609 1133; Add 1506 1506 1642; Mul 1315 372 1315;
  Mul 1642 604 1230; Add 1315 1315 1642; Add 1506 1506 1315; Mul 1665 369 1665; Mul 1315 426 1279;
  Add 1665 1665 1315; Add 1506 1506 1665; Sub 1549 1549 1506; Mul 1506 536 1549; Mul 1223 862 1223;
  Add 1506 1506 1223; Sub 1422 1422 1506; Mul 1110 858 1110; Mul 1506 434 1018; Add 1110 1110 1506;
  Mul 1402 860 1402; Mul 1506 438 1081; Add 1402 1402 1506; Sub 1110 1110 1402; Mul 1402 13 1133;
  Mul 1376 358 1376; Sub 1402 1402 1376; Mul 1193 372 1193; Mul 1376 609 1230; Add 1193 1193 1376;
  Add 1402 1402 1193; Mul 1692 369 1692; Mul 1193 443 1279; Add 1692 1692 1193; Add 1402 1402 1692;
  Sub 1110 1110 1402; Mul 1402 526 1110; Mul 1091 863 1091; Add 1402 1402 1091; Sub 1422 1422 1402;
  Add 1475 1475 1422; Add 1042 1042 1417; Mul 1417 803 1230; Mul 1180 372 1180; Add 1417 1417 1180;
  Mul 1180 648 1279; Mul 1123 369 1123; Add 1180 1180 1123; Add 1417 1417 1180; Add 1042 1042 1417;
  Mul 1417 540 1042; Mul 1654 861 1654; Sub 1417 1417 1654; Mul 1654 394 1133; Mul 1640 358 1640;
  Add 1654 1654 1640; Add 1209 1209 1019; Mul 1019 669 1279; Mul 1611 369 1611; Add 1019 1019 1611;
  Add 1209 1209 1019; Add 1654 1654 1209; Mul 1209 544 1654; Mul 1083 865 1083; Add 1209 1209 1083;
  Add 1417 1417 1209; Mul 1209 801 1352; Mul 1398 736 1398; Add 1209 1209 1398; Add 1389 1389 1206;
  Mul 1206 355 1242; Mul 1219 738 1219; Add 1206 1206 1219; Add 1389 1389 1206; Add 1209 1209 1389;
  Mul 1389 359 1133; Mul 1589 358 1589; Add 1389 1389 1589; Add 1525 1525 1388].
Definition casadi_f0_763 : list instruction := [
  Mul 1388 608 1279; Mul 1671 369 1671; Add 1388 1388 1671; Add 1525 1525 1388; Add 1389 1389 1525;
  Sub 1209 1209 1389; Mul 1389 216 1209; Mul 1430 866 1430; Sub 1389 1389 1430; Add 1427 1427 1677;
  Mul 1677 457 1079; Mul 1093 741 1093; Add 1677 1677 1093; Mul 1093 234 1242; Mul 1119 738 1119;
  Add 1093 1093 1119; Add 1677 1677 1093; Add 1427 1427 1677; Add 1200 1200 1261; Mul 1261 352 1230;
  Mul 1313 372 1313; Add 1261 1261 1313; Mul 1313 622 1279; Mul 1667 369 1667; Add 1313 1313 1667;
  Add 1261 1261 1313; Add 1200 1200 1261; Sub 1427 1427 1200; Mul 1200 215 1427; Mul 1674 868 1674;
  Add 1200 1200 1674; Sub 1674 1389 1200; Add 1417 1417 1674; Add 1475 1475 1417; Mul 1475 1 1475;
  Mul 1492 857 1492; Add 1475 1475 1492; Add 1135 1135 1475; Mul 1475 678 1651; Mul 1564 856 1564;
  Add 1475 1475 1564; Mul 1564 673 1081; Mul 1228 860 1228; Add 1564 1564 1228; Mul 1228 799 1018;
  Mul 1488 858 1488; Add 1228 1228 1488; Add 1564 1564 1228; Add 1475 1475 1564; Mul 1564 602 1110;
  Mul 1631 863 1631; Add 1564 1564 1631; Mul 1631 670 1549; Mul 1203 862 1203; Add 1631 1631 1203;
  Mul 1203 671 1365; Mul 1602 859 1602; Add 1203 1203 1602; Sub 1631 1631 1203; Add 1564 1564 1631;
  Add 1475 1475 1564; Mul 1564 245 1133; Mul 1102 358 1102; Add 1564 1564 1102; Mul 1102 356 1230;
  Mul 1386 372 1386; Add 1102 1102 1386; Add 1703 1703 1353; Add 1102 1102 1703; Add 1564 1564 1102;
  Mul 1102 676 1564; Mul 1121 871 1121; Add 1102 1102 1121; Mul 1121 680 1654; Mul 1487 865 1487;
  Add 1121 1121 1487; Sub 1102 1102 1121; Mul 1121 674 1042; Mul 1384 861 1384; Sub 1121 1121 1384;
  Sub 1102 1102 1121; Sub 1200 1200 1389; Add 1102 1102 1200; Add 1475 1475 1102; Mul 1475 2 1475;
  Mul 1650 864 1650; Add 1475 1475 1650; Add 1135 1135 1475; Mul 1475 717 1651; Mul 1499 856 1499;
  Add 1475 1475 1499; Mul 1499 787 1018; Mul 1126 858 1126; Add 1499 1499 1126; Mul 1126 713 1081;
  Mul 1237 860 1237; Add 1126 1126 1237; Sub 1499 1499 1126; Add 1475 1475 1499; Mul 1499 677 1365;
  Mul 1423 859 1423; Add 1499 1499 1423; Mul 1423 712 1549; Mul 1565 862 1565; Add 1423 1423 1565;
  Sub 1499 1499 1423; Mul 1423 706 1110; Mul 1410 863 1410; Add 1423 1423 1410; Sub 1499 1499 1423;
  Add 1475 1475 1499; Mul 1499 714 1042; Mul 1491 861 1491; Add 1499 1499 1491; Mul 1491 718 1654;
  Mul 1462 865 1462; Add 1491 1491 1462; Mul 1462 716 1564; Mul 1367 871 1367; Add 1462 1462 1367;
  Sub 1491 1491 1462; Add 1499 1499 1491; Add 1499 1499 1674; Add 1475 1475 1499; Mul 1475 3 1475;
  Mul 1625 872 1625; Add 1475 1475 1625; Add 1135 1135 1475; Mul 1651 729 1651; Mul 1272 856 1272;
  Add 1651 1651 1272; Mul 1081 724 1081; Mul 1362 860 1362; Add 1081 1081 1362; Mul 1018 688 1018;
  Mul 1451 858 1451; Add 1018 1018 1451; Add 1081 1081 1018; Add 1651 1651 1081; Mul 1110 715 1110;
  Mul 1473 863 1473; Add 1110 1110 1473; Mul 1549 721 1549; Mul 1494 862 1494; Add 1549 1549 1494;
  Mul 1365 722 1365; Mul 1406 859 1406; Add 1365 1365 1406; Add 1549 1549 1365].
Definition casadi_f0_764 : list instruction := [
  Add 1110 1110 1549; Add 1651 1651 1110; Mul 1042 725 1042; Mul 1329 861 1329; Add 1042 1042 1329;
  Mul 1654 731 1654; Mul 1489 865 1489; Add 1654 1654 1489; Mul 1564 727 1564; Mul 1459 871 1459;
  Add 1564 1564 1459; Add 1654 1654 1564; Add 1042 1042 1654; Mul 1427 310 1427; Mul 1319 868 1319;
  Add 1427 1427 1319; Mul 1209 327 1209; Mul 1421 866 1421; Add 1209 1209 1421; Mul 1509 318 1509;
  Mul 1142 849 1142; Add 1509 1509 1142; Add 1209 1209 1509; Add 1427 1427 1209; Add 1042 1042 1427;
  Sub 1651 1651 1042; Mul 1651 4 1651; Mul 1538 869 1538; Add 1651 1651 1538; Add 1135 1135 1651;
  Mul 1352 820 1352; Mul 1234 736 1234; Add 1352 1352 1234; Mul 1079 822 1079; Mul 1089 741 1089;
  Add 1079 1079 1089; Mul 1242 788 1242; Mul 1552 738 1552; Add 1242 1242 1552; Add 1079 1079 1242;
  Add 1352 1352 1079; Mul 1133 817 1133; Mul 1159 358 1159; Add 1133 1133 1159; Mul 1230 814 1230;
  Mul 1021 372 1021; Add 1230 1230 1021; Mul 1279 732 1279; Mul 1701 369 1701; Add 1279 1279 1701;
  Add 1230 1230 1279; Add 1133 1133 1230; Sub 1352 1352 1133; Mul 1352 5 1352; Mul 1309 870 1309;
  Add 1352 1352 1309; Add 1135 1135 1352; Sub 1504 1504 1135; Mul 1135 754 1504; Add 1695 1695 1135;
  Add 1514 1514 1695; Mul 1695 210 1635; Mul 1135 200 1592; Add 1695 1695 1135; Mul 1298 19 1298;
  Mul 1135 196 1269; Sub 1298 1298 1135; Mul 1135 189 1062; Mul 1359 35 1359; Sub 1135 1135 1359;
  Sub 1298 1298 1135; Mul 1025 55 1025; Mul 1208 62 1208; Add 1025 1025 1208; Add 1298 1298 1025;
  Mul 1385 86 1385; Mul 1183 91 1183; Add 1385 1385 1183; Add 1385 1298 1385; Mul 1605 102 1605;
  Sub 1605 1385 1605; Mul 1183 777 1605; Mul 1025 209 1049; Add 1183 1183 1025; Add 1695 1695 1183;
  Mul 1183 778 1385; Mul 1025 867 1533; Add 1183 1183 1025; Add 1695 1695 1183; Mul 1183 769 1298;
  Mul 1025 855 1288; Add 1183 1183 1025; Add 1695 1695 1183; Mul 1183 761 1020; Mul 1025 201 1445;
  Add 1183 1183 1025; Sub 1695 1695 1183; Mul 1183 873 1377; Add 1695 1695 1183; Mul 1183 1006 1695;
  Mul 1025 210 1695; Mul 1208 756 1592; Add 1025 1025 1208; Sub 1635 1635 1025; Mul 1025 881 1635;
  Mul 1208 210 1561; Mul 1135 143 1592; Add 1208 1208 1135; Sub 1498 1498 1600; Sub 1202 1202 1464;
  Mul 1202 37 1202; Add 1498 1498 1202; Sub 1052 1052 1128; Mul 1052 80 1052; Add 1052 1498 1052;
  Sub 1356 1356 1301; Mul 1356 100 1356; Add 1356 1052 1356; Mul 1387 1064 1387; Mul 1322 1061 1322;
  Add 1387 1387 1322; Mul 1387 141 1387; Add 1356 1356 1387; Mul 1387 777 1356; Mul 1322 876 1049;
  Add 1387 1387 1322; Add 1208 1208 1387; Mul 1321 151 1321; Mul 1280 103 1280; Add 1321 1321 1280;
  Mul 1314 148 1314; Mul 1028 105 1028; Add 1314 1314 1028; Sub 1321 1321 1314; Sub 1321 1321 1052;
  Mul 1120 102 1120; Sub 1120 1321 1120; Mul 1052 778 1120; Mul 1314 153 1533; Add 1052 1052 1314;
  Sub 1208 1208 1052; Mul 1544 1057 1544; Mul 1117 1065 1117; Sub 1544 1544 1117; Mul 1544 156 1544;
  Add 1498 1498 1544; Mul 1266 86 1266; Mul 1531 91 1531; Sub 1266 1266 1531].
Definition casadi_f0_765 : list instruction := [
  Add 1266 1498 1266; Mul 1508 102 1508; Sub 1508 1266 1508; Mul 1531 769 1508; Mul 1544 171 1288;
  Add 1531 1531 1544; Add 1208 1208 1531; Mul 1062 180 1062; Mul 1408 35 1408; Add 1062 1062 1408;
  Mul 1076 19 1076; Mul 1269 182 1269; Sub 1076 1076 1269; Sub 1062 1062 1076; Mul 1373 55 1373;
  Add 1062 1062 1373; Mul 1669 86 1669; Mul 1115 91 1115; Add 1669 1669 1115; Add 1669 1062 1669;
  Mul 1276 102 1276; Sub 1276 1669 1276; Mul 1115 761 1276; Mul 1373 188 1445; Add 1115 1115 1373;
  Add 1208 1208 1115; Mul 1115 754 1605; Mul 1373 209 1377; Add 1115 1115 1373; Add 1208 1208 1115;
  Mul 1115 210 1208; Mul 1373 875 1592; Add 1115 1115 1373; Sub 1561 1561 1115; Div 1115 1561 65;
  Mul 1561 89 1561; Mul 1373 777 1208; Mul 1076 875 1049; Add 1373 1373 1076; Sub 1356 1356 1373;
  Mul 1373 58 1356; Add 1561 1561 1373; Mul 1373 778 1208; Mul 1076 875 1533; Add 1373 1373 1076;
  Add 1373 1120 1373; Mul 1076 45 1373; Add 1561 1561 1076; Mul 1076 769 1208; Mul 1269 875 1288;
  Add 1076 1076 1269; Sub 1076 1508 1076; Mul 1269 22 1076; Add 1561 1561 1269; Mul 1269 761 1208;
  Mul 1408 875 1445; Add 1269 1269 1408; Sub 1269 1276 1269; Mul 1408 879 1269; Add 1561 1561 1408;
  Mul 1408 754 1208; Mul 1531 875 1377; Add 1408 1408 1531; Sub 1408 1605 1408; Mul 1531 880 1408;
  Add 1561 1561 1531; Div 1561 1561 1045; Mul 1531 1078 1561; Sub 1115 1115 1531; Mul 1531 874 1115;
  Add 1025 1025 1531; Mul 1531 777 1695; Mul 1544 756 1049; Add 1531 1531 1544; Sub 1605 1605 1531;
  Mul 1531 884 1605; Div 1356 1356 65; Mul 1544 1029 1561; Sub 1356 1356 1544; Mul 1544 883 1356;
  Add 1531 1531 1544; Add 1025 1025 1531; Mul 1531 778 1695; Mul 1544 756 1533; Add 1531 1531 1544;
  Sub 1531 1531 1385; Mul 1544 886 1531; Div 1373 1373 65; Mul 1117 1063 1561; Sub 1373 1373 1117;
  Mul 1117 885 1373; Add 1544 1544 1117; Add 1025 1025 1544; Mul 1544 769 1695; Mul 1117 756 1288;
  Add 1544 1544 1117; Sub 1544 1298 1544; Mul 1117 888 1544; Div 1076 1076 65; Mul 1052 1040 1561;
  Sub 1076 1076 1052; Mul 1052 887 1076; Add 1117 1117 1052; Add 1025 1025 1117; Mul 1117 761 1695;
  Mul 1052 756 1445; Add 1117 1117 1052; Add 1117 1020 1117; Mul 1052 890 1117; Div 1269 1269 65;
  Mul 1314 1027 1561; Sub 1269 1269 1314; Mul 1314 889 1269; Add 1052 1052 1314; Sub 1025 1025 1052;
  Div 1408 1408 65; Mul 1052 1046 1561; Sub 1408 1408 1052; Mul 1052 891 1408; Mul 1695 754 1695;
  Mul 1314 756 1377; Add 1695 1695 1314; Mul 1314 892 1695; Sub 1052 1052 1314; Add 1025 1025 1052;
  Mul 1052 881 1025; Mul 1314 882 1115; Add 1052 1052 1314; Sub 1635 1635 1052; Mul 1052 884 1025;
  Mul 1314 882 1356; Add 1052 1052 1314; Sub 1605 1605 1052; Mul 1052 910 1605; Mul 1314 777 1120;
  Mul 1028 153 1049; Add 1314 1314 1028; Mul 1028 210 1395; Mul 1280 154 1592; Add 1028 1028 1280;
  Sub 1314 1314 1028; Mul 1028 778 1321; Mul 1280 106 1533; Add 1028 1028 1280; Add 1314 1314 1028;
  Mul 1028 769 1266; Mul 1280 877 1288; Add 1028 1028 1280; Sub 1314 1314 1028].
Definition casadi_f0_766 : list instruction := [
  Mul 1028 761 1669; Mul 1280 94 1445; Add 1028 1028 1280; Sub 1314 1314 1028; Mul 1028 754 1385;
  Mul 1280 867 1377; Add 1028 1028 1280; Sub 1314 1314 1028; Mul 1028 777 1314; Mul 1280 895 1049;
  Add 1028 1028 1280; Sub 1120 1120 1028; Mul 1028 884 1120; Mul 1280 896 1356; Add 1028 1028 1280;
  Mul 1280 210 1314; Mul 1387 895 1592; Add 1280 1280 1387; Add 1395 1395 1280; Mul 1280 881 1395;
  Mul 1387 898 1115; Add 1280 1280 1387; Sub 1028 1028 1280; Mul 1280 778 1314; Mul 1387 895 1533;
  Add 1280 1280 1387; Sub 1280 1280 1321; Mul 1321 886 1280; Mul 1387 899 1373; Add 1321 1321 1387;
  Add 1028 1028 1321; Mul 1321 769 1314; Mul 1387 895 1288; Add 1321 1321 1387; Add 1321 1266 1321;
  Mul 1387 888 1321; Mul 1322 900 1076; Add 1387 1387 1322; Sub 1028 1028 1387; Mul 1387 761 1314;
  Mul 1322 895 1445; Add 1387 1387 1322; Add 1387 1669 1387; Mul 1322 890 1387; Mul 1301 901 1269;
  Add 1322 1322 1301; Sub 1028 1028 1322; Mul 1322 754 1314; Mul 1301 895 1377; Add 1322 1322 1301;
  Add 1385 1385 1322; Mul 1322 892 1385; Mul 1301 902 1408; Add 1322 1322 1301; Sub 1028 1028 1322;
  Mul 1322 884 1028; Mul 1301 897 1356; Add 1322 1322 1301; Sub 1120 1120 1322; Div 1322 1120 905;
  Mul 1301 881 1028; Mul 1128 897 1115; Add 1301 1301 1128; Add 1395 1395 1301; Mul 1301 904 1395;
  Mul 1120 903 1120; Add 1301 1301 1120; Mul 1120 886 1028; Mul 1128 897 1373; Add 1120 1120 1128;
  Sub 1280 1280 1120; Mul 1120 906 1280; Add 1301 1301 1120; Mul 1120 888 1028; Mul 1128 897 1076;
  Add 1120 1120 1128; Add 1321 1321 1120; Mul 1120 907 1321; Add 1301 1301 1120; Mul 1120 890 1028;
  Mul 1128 897 1269; Add 1120 1120 1128; Add 1387 1387 1120; Mul 1120 908 1387; Add 1301 1301 1120;
  Mul 1120 892 1028; Mul 1128 897 1408; Add 1120 1120 1128; Add 1385 1385 1120; Mul 1120 909 1385;
  Add 1301 1301 1120; Div 1301 1301 1067; Mul 1120 1214 1301; Sub 1322 1322 1120; Mul 1120 894 1322;
  Add 1052 1052 1120; Mul 1120 912 1635; Div 1395 1395 905; Mul 1128 1614 1301; Sub 1395 1395 1128;
  Mul 1128 893 1395; Add 1120 1120 1128; Sub 1052 1052 1120; Mul 1120 886 1025; Mul 1128 882 1373;
  Add 1120 1120 1128; Sub 1531 1531 1120; Mul 1120 914 1531; Div 1280 1280 905; Mul 1128 1273 1301;
  Sub 1280 1280 1128; Mul 1128 913 1280; Add 1120 1120 1128; Add 1052 1052 1120; Mul 1120 888 1025;
  Mul 1128 882 1076; Add 1120 1120 1128; Sub 1544 1544 1120; Mul 1120 916 1544; Div 1321 1321 905;
  Mul 1128 1260 1301; Sub 1321 1321 1128; Mul 1128 915 1321; Add 1120 1120 1128; Sub 1052 1052 1120;
  Mul 1120 890 1025; Mul 1128 882 1269; Add 1120 1120 1128; Add 1117 1117 1120; Mul 1120 918 1117;
  Div 1387 1387 905; Mul 1128 1249 1301; Sub 1387 1387 1128; Mul 1128 917 1387; Add 1120 1120 1128;
  Add 1052 1052 1120; Div 1385 1385 905; Mul 1120 1569 1301; Sub 1385 1385 1120; Mul 1120 919 1385;
  Mul 1128 892 1025; Mul 1202 882 1408; Add 1128 1128 1202; Add 1695 1695 1128; Mul 1128 920 1695;
  Sub 1120 1120 1128; Sub 1052 1052 1120; Mul 1120 912 1052; Mul 1128 911 1395].
Definition casadi_f0_767 : list instruction := [
  Add 1120 1120 1128; Add 1635 1635 1120; Mul 1120 944 1635; Mul 1128 210 1222; Mul 1202 168 1592;
  Add 1128 1128 1202; Mul 1202 777 1508; Mul 1464 171 1049; Add 1202 1202 1464; Add 1128 1128 1202;
  Mul 1202 778 1266; Mul 1464 877 1533; Add 1202 1202 1464; Add 1128 1128 1202; Mul 1202 769 1498;
  Mul 1464 878 1288; Add 1202 1202 1464; Add 1128 1128 1202; Mul 1202 761 1062; Mul 1464 98 1445;
  Add 1202 1202 1464; Add 1128 1128 1202; Mul 1202 754 1298; Mul 1464 855 1377; Add 1202 1202 1464;
  Add 1128 1128 1202; Mul 1202 210 1128; Mul 1464 922 1592; Add 1202 1202 1464; Sub 1222 1222 1202;
  Mul 1202 881 1222; Mul 1464 923 1115; Add 1202 1202 1464; Mul 1464 777 1128; Mul 1600 922 1049;
  Add 1464 1464 1600; Sub 1508 1508 1464; Mul 1464 884 1508; Mul 1600 925 1356; Add 1464 1464 1600;
  Add 1202 1202 1464; Mul 1464 778 1128; Mul 1600 922 1533; Add 1464 1464 1600; Sub 1464 1464 1266;
  Mul 1266 886 1464; Mul 1600 926 1373; Add 1266 1266 1600; Add 1202 1202 1266; Mul 1266 769 1128;
  Mul 1600 922 1288; Add 1266 1266 1600; Sub 1498 1498 1266; Mul 1266 888 1498; Mul 1600 927 1076;
  Add 1266 1266 1600; Add 1202 1202 1266; Mul 1266 761 1128; Mul 1600 922 1445; Add 1266 1266 1600;
  Sub 1266 1062 1266; Mul 1600 890 1266; Mul 1135 928 1269; Add 1600 1600 1135; Add 1202 1202 1600;
  Mul 1600 754 1128; Mul 1135 922 1377; Add 1600 1600 1135; Sub 1298 1298 1600; Mul 1600 892 1298;
  Mul 1135 929 1408; Add 1600 1600 1135; Add 1202 1202 1600; Mul 1600 881 1202; Mul 1135 924 1115;
  Add 1600 1600 1135; Sub 1222 1222 1600; Mul 1600 884 1202; Mul 1135 924 1356; Add 1600 1600 1135;
  Sub 1508 1508 1600; Mul 1600 910 1508; Mul 1135 931 1322; Add 1600 1600 1135; Mul 1135 912 1222;
  Mul 1359 930 1395; Add 1135 1135 1359; Sub 1600 1600 1135; Mul 1135 886 1202; Mul 1359 924 1373;
  Add 1135 1135 1359; Sub 1464 1464 1135; Mul 1135 914 1464; Mul 1359 933 1280; Add 1135 1135 1359;
  Add 1600 1600 1135; Mul 1135 888 1202; Mul 1359 924 1076; Add 1135 1135 1359; Sub 1498 1498 1135;
  Mul 1135 916 1498; Mul 1359 934 1321; Add 1135 1135 1359; Sub 1600 1600 1135; Mul 1135 890 1202;
  Mul 1359 924 1269; Add 1135 1135 1359; Sub 1266 1266 1135; Mul 1135 918 1266; Mul 1359 935 1387;
  Add 1135 1135 1359; Sub 1600 1600 1135; Mul 1135 892 1202; Mul 1359 924 1408; Add 1135 1135 1359;
  Sub 1298 1298 1135; Mul 1135 920 1298; Mul 1359 936 1385; Add 1135 1135 1359; Sub 1600 1600 1135;
  Mul 1135 912 1600; Mul 1359 932 1395; Add 1135 1135 1359; Add 1222 1222 1135; Div 1135 1222 938;
  Mul 1222 937 1222; Mul 1359 910 1600; Mul 1352 932 1322; Add 1359 1359 1352; Sub 1508 1508 1359;
  Mul 1359 939 1508; Add 1222 1222 1359; Mul 1359 914 1600; Mul 1352 932 1280; Add 1359 1359 1352;
  Sub 1464 1464 1359; Mul 1359 940 1464; Add 1222 1222 1359; Mul 1359 916 1600; Mul 1352 932 1321;
  Add 1359 1359 1352; Add 1498 1498 1359; Mul 1359 941 1498; Add 1222 1222 1359; Mul 1359 918 1600;
  Mul 1352 932 1387; Add 1359 1359 1352; Add 1266 1266 1359; Mul 1359 942 1266].
Definition casadi_f0_768 : list instruction := [
  Add 1222 1222 1359; Mul 1359 920 1600; Mul 1352 932 1385; Add 1359 1359 1352; Add 1298 1298 1359;
  Mul 1359 943 1298; Add 1222 1222 1359; Div 1222 1222 1615; Mul 1359 1446 1222; Sub 1135 1135 1359;
  Mul 1359 921 1135; Add 1120 1120 1359; Mul 1359 910 1052; Mul 1352 911 1322; Add 1359 1359 1352;
  Sub 1605 1605 1359; Mul 1359 947 1605; Div 1508 1508 938; Mul 1352 1184 1222; Sub 1508 1508 1352;
  Mul 1352 946 1508; Add 1359 1359 1352; Add 1120 1120 1359; Mul 1359 914 1052; Mul 1352 911 1280;
  Add 1359 1359 1352; Sub 1531 1531 1359; Mul 1359 949 1531; Div 1464 1464 938; Mul 1352 1160 1222;
  Sub 1464 1464 1352; Mul 1352 948 1464; Add 1359 1359 1352; Add 1120 1120 1359; Mul 1359 916 1052;
  Mul 1352 911 1321; Add 1359 1359 1352; Add 1544 1544 1359; Mul 1359 951 1544; Div 1498 1498 938;
  Mul 1352 1328 1222; Sub 1498 1498 1352; Mul 1352 950 1498; Add 1359 1359 1352; Add 1120 1120 1359;
  Mul 1359 918 1052; Mul 1352 911 1387; Add 1359 1359 1352; Sub 1359 1359 1117; Mul 1117 953 1359;
  Div 1266 1266 938; Mul 1352 1155 1222; Sub 1266 1266 1352; Mul 1352 952 1266; Add 1117 1117 1352;
  Add 1120 1120 1117; Mul 1117 920 1052; Mul 1352 911 1385; Add 1117 1117 1352; Sub 1117 1117 1695;
  Mul 1695 955 1117; Div 1298 1298 938; Mul 1352 1220 1222; Sub 1298 1298 1352; Mul 1352 954 1298;
  Add 1695 1695 1352; Add 1120 1120 1695; Mul 1695 944 1120; Mul 1352 945 1135; Add 1695 1695 1352;
  Sub 1635 1635 1695; Mul 1695 986 1635; Mul 1352 210 1259; Mul 1309 175 1592; Add 1352 1352 1309;
  Mul 1309 777 1276; Mul 1133 188 1049; Add 1309 1309 1133; Add 1352 1352 1309; Mul 1309 778 1669;
  Mul 1133 94 1533; Add 1309 1309 1133; Add 1352 1352 1309; Mul 1309 769 1062; Mul 1133 98 1288;
  Add 1309 1309 1133; Add 1352 1352 1309; Mul 1309 761 1519; Mul 1133 172 1445; Add 1309 1309 1133;
  Sub 1352 1352 1309; Mul 1309 754 1020; Mul 1133 201 1377; Add 1309 1309 1133; Sub 1352 1352 1309;
  Mul 1309 210 1352; Mul 1592 957 1592; Add 1309 1309 1592; Sub 1259 1259 1309; Mul 1309 881 1259;
  Mul 1592 958 1115; Add 1309 1309 1592; Mul 1592 777 1352; Mul 1049 957 1049; Add 1592 1592 1049;
  Sub 1276 1276 1592; Mul 1592 884 1276; Mul 1049 960 1356; Add 1592 1592 1049; Add 1309 1309 1592;
  Mul 1592 778 1352; Mul 1533 957 1533; Add 1592 1592 1533; Sub 1592 1592 1669; Mul 1669 886 1592;
  Mul 1533 961 1373; Add 1669 1669 1533; Add 1309 1309 1669; Mul 1669 769 1352; Mul 1288 957 1288;
  Add 1669 1669 1288; Sub 1062 1062 1669; Mul 1669 888 1062; Mul 1288 962 1076; Add 1669 1669 1288;
  Add 1309 1309 1669; Mul 1669 761 1352; Mul 1445 957 1445; Add 1669 1669 1445; Add 1519 1519 1669;
  Mul 1669 890 1519; Mul 1445 963 1269; Add 1669 1669 1445; Sub 1309 1309 1669; Mul 1669 754 1352;
  Mul 1377 957 1377; Add 1669 1669 1377; Add 1020 1020 1669; Mul 1669 892 1020; Mul 1377 964 1408;
  Add 1669 1669 1377; Sub 1309 1309 1669; Mul 1669 881 1309; Mul 1377 959 1115; Add 1669 1669 1377;
  Sub 1259 1259 1669; Mul 1669 884 1309; Mul 1377 959 1356; Add 1669 1669 1377].
Definition casadi_f0_769 : list instruction := [
  Sub 1276 1276 1669; Mul 1669 910 1276; Mul 1377 966 1322; Add 1669 1669 1377; Mul 1377 912 1259;
  Mul 1445 965 1395; Add 1377 1377 1445; Sub 1669 1669 1377; Mul 1377 886 1309; Mul 1445 959 1373;
  Add 1377 1377 1445; Sub 1592 1592 1377; Mul 1377 914 1592; Mul 1445 968 1280; Add 1377 1377 1445;
  Add 1669 1669 1377; Mul 1377 888 1309; Mul 1445 959 1076; Add 1377 1377 1445; Sub 1062 1062 1377;
  Mul 1377 916 1062; Mul 1445 969 1321; Add 1377 1377 1445; Sub 1669 1669 1377; Mul 1377 890 1309;
  Mul 1445 959 1269; Add 1377 1377 1445; Add 1519 1519 1377; Mul 1377 918 1519; Mul 1445 970 1387;
  Add 1377 1377 1445; Add 1669 1669 1377; Mul 1377 892 1309; Mul 1445 959 1408; Add 1377 1377 1445;
  Add 1020 1020 1377; Mul 1377 920 1020; Mul 1445 971 1385; Add 1377 1377 1445; Add 1669 1669 1377;
  Mul 1377 912 1669; Mul 1445 967 1395; Add 1377 1377 1445; Add 1259 1259 1377; Mul 1377 944 1259;
  Mul 1445 972 1135; Add 1377 1377 1445; Mul 1445 910 1669; Mul 1288 967 1322; Add 1445 1445 1288;
  Sub 1276 1276 1445; Mul 1445 947 1276; Mul 1288 974 1508; Add 1445 1445 1288; Add 1377 1377 1445;
  Mul 1445 914 1669; Mul 1288 967 1280; Add 1445 1445 1288; Sub 1592 1592 1445; Mul 1445 949 1592;
  Mul 1288 975 1464; Add 1445 1445 1288; Add 1377 1377 1445; Mul 1445 916 1669; Mul 1288 967 1321;
  Add 1445 1445 1288; Add 1062 1062 1445; Mul 1445 951 1062; Mul 1288 976 1498; Add 1445 1445 1288;
  Add 1377 1377 1445; Mul 1445 918 1669; Mul 1288 967 1387; Add 1445 1445 1288; Sub 1445 1445 1519;
  Mul 1519 953 1445; Mul 1288 977 1266; Add 1519 1519 1288; Add 1377 1377 1519; Mul 1519 920 1669;
  Mul 1288 967 1385; Add 1519 1519 1288; Sub 1519 1519 1020; Mul 1020 955 1519; Mul 1288 978 1298;
  Add 1020 1020 1288; Add 1377 1377 1020; Mul 1020 944 1377; Mul 1288 973 1135; Add 1020 1020 1288;
  Sub 1259 1259 1020; Div 1020 1259 980; Mul 1259 979 1259; Mul 1288 947 1377; Mul 1533 973 1508;
  Add 1288 1288 1533; Sub 1276 1276 1288; Mul 1288 981 1276; Add 1259 1259 1288; Mul 1288 949 1377;
  Mul 1533 973 1464; Add 1288 1288 1533; Sub 1592 1592 1288; Mul 1288 982 1592; Add 1259 1259 1288;
  Mul 1288 951 1377; Mul 1533 973 1498; Add 1288 1288 1533; Sub 1062 1062 1288; Mul 1288 983 1062;
  Add 1259 1259 1288; Mul 1288 953 1377; Mul 1533 973 1266; Add 1288 1288 1533; Sub 1445 1445 1288;
  Mul 1288 984 1445; Add 1259 1259 1288; Mul 1288 955 1377; Mul 1533 973 1298; Add 1288 1288 1533;
  Sub 1519 1519 1288; Mul 1288 985 1519; Add 1259 1259 1288; Div 1259 1259 1630; Mul 1288 1629 1259;
  Sub 1020 1020 1288; Mul 1288 956 1020; Add 1695 1695 1288; Mul 1288 947 1120; Mul 1533 945 1508;
  Add 1288 1288 1533; Sub 1605 1605 1288; Mul 1288 989 1605; Div 1276 1276 980; Mul 1533 1262 1259;
  Sub 1276 1276 1533; Mul 1533 988 1276; Add 1288 1288 1533; Add 1695 1695 1288; Mul 1288 949 1120;
  Mul 1533 945 1464; Add 1288 1288 1533; Sub 1531 1531 1288; Mul 1288 991 1531; Div 1592 1592 980;
  Mul 1533 1306 1259; Sub 1592 1592 1533; Mul 1533 990 1592; Add 1288 1288 1533].
Definition casadi_f0_770 : list instruction := [
  Add 1695 1695 1288; Mul 1288 951 1120; Mul 1533 945 1498; Add 1288 1288 1533; Sub 1544 1544 1288;
  Mul 1288 993 1544; Div 1062 1062 980; Mul 1533 1626 1259; Sub 1062 1062 1533; Mul 1533 992 1062;
  Add 1288 1288 1533; Add 1695 1695 1288; Mul 1288 953 1120; Mul 1533 945 1266; Add 1288 1288 1533;
  Sub 1359 1359 1288; Mul 1288 995 1359; Div 1445 1445 980; Mul 1533 1530 1259; Sub 1445 1445 1533;
  Mul 1533 994 1445; Add 1288 1288 1533; Add 1695 1695 1288; Mul 1288 955 1120; Mul 1533 945 1298;
  Add 1288 1288 1533; Sub 1117 1117 1288; Mul 1288 997 1117; Div 1519 1519 980; Mul 1533 1472 1259;
  Sub 1519 1519 1533; Mul 1533 996 1519; Add 1288 1288 1533; Add 1695 1695 1288; Mul 1288 986 1695;
  Mul 1533 987 1020; Add 1288 1288 1533; Sub 1635 1635 1288; Div 1288 1635 999; Mul 1635 998 1635;
  Mul 1533 989 1695; Mul 1049 987 1276; Add 1533 1533 1049; Sub 1605 1605 1533; Mul 1533 1000 1605;
  Add 1635 1635 1533; Mul 1533 991 1695; Mul 1049 987 1592; Add 1533 1533 1049; Sub 1531 1531 1533;
  Mul 1533 1001 1531; Add 1635 1635 1533; Mul 1533 993 1695; Mul 1049 987 1062; Add 1533 1533 1049;
  Sub 1544 1544 1533; Mul 1533 1002 1544; Add 1635 1635 1533; Mul 1533 995 1695; Mul 1049 987 1445;
  Add 1533 1533 1049; Sub 1359 1359 1533; Mul 1533 1003 1359; Add 1635 1635 1533; Mul 1533 997 1695;
  Mul 1049 987 1519; Add 1533 1533 1049; Sub 1117 1117 1533; Mul 1533 1004 1117; Add 1635 1635 1533;
  Div 1635 1635 1095; Mul 1533 1596 1635; Sub 1288 1288 1533; Mul 1288 211 1288; Mul 1533 1005 1127;
  Sub 1288 1288 1533; Div 1605 1605 999; Mul 1533 1331 1635; Sub 1605 1605 1533; Mul 1605 779 1605;
  Mul 1533 1007 1582; Sub 1605 1605 1533; Add 1288 1288 1605; Div 1531 1531 999; Mul 1605 1080 1635;
  Sub 1531 1531 1605; Mul 1531 767 1531; Mul 1605 1008 1344; Add 1531 1531 1605; Add 1288 1288 1531;
  Div 1544 1544 999; Mul 1531 1056 1635; Sub 1544 1544 1531; Mul 1544 775 1544; Mul 1531 1009 1374;
  Sub 1544 1544 1531; Add 1288 1288 1544; Div 1359 1359 999; Mul 1544 1068 1635; Sub 1359 1359 1544;
  Mul 1359 815 1359; Mul 1544 1010 1221; Add 1359 1359 1544; Add 1288 1288 1359; Div 1117 1117 999;
  Mul 1359 1178 1635; Sub 1117 1117 1359; Mul 1117 833 1117; Mul 1359 1011 1504; Add 1117 1117 1359;
  Add 1288 1288 1117; Div 1288 1288 999; Mul 1635 1033 1635; Sub 1288 1288 1635; Mul 1635 756 1288;
  Add 1183 1183 1635; Sub 1514 1514 1183; Mul 1352 1012 1352; Mul 1020 211 1020; Mul 1183 986 1127;
  Sub 1020 1020 1183; Mul 1276 779 1276; Mul 1183 989 1582; Sub 1276 1276 1183; Add 1020 1020 1276;
  Mul 1592 767 1592; Mul 1276 991 1344; Add 1592 1592 1276; Add 1020 1020 1592; Mul 1062 775 1062;
  Mul 1592 993 1374; Sub 1062 1062 1592; Add 1020 1020 1062; Mul 1445 815 1445; Mul 1062 995 1221;
  Add 1445 1445 1062; Add 1020 1020 1445; Mul 1519 833 1519; Mul 1445 997 1504; Add 1519 1519 1445;
  Add 1020 1020 1519; Mul 1695 1006 1695; Mul 1519 987 1288; Add 1695 1695 1519; Sub 1020 1020 1695;
  Div 1020 1020 980; Mul 1259 1534 1259; Sub 1020 1020 1259; Mul 1259 957 1020].
Definition casadi_f0_771 : list instruction := [
  Add 1352 1352 1259; Sub 1514 1514 1352; Mul 1128 1013 1128; Mul 1135 211 1135; Mul 1352 944 1127;
  Sub 1135 1135 1352; Mul 1508 779 1508; Mul 1352 947 1582; Sub 1508 1508 1352; Add 1135 1135 1508;
  Mul 1464 767 1464; Mul 1508 949 1344; Add 1464 1464 1508; Add 1135 1135 1464; Mul 1498 775 1498;
  Mul 1464 951 1374; Sub 1498 1498 1464; Add 1135 1135 1498; Mul 1266 815 1266; Mul 1498 953 1221;
  Add 1266 1266 1498; Add 1135 1135 1266; Mul 1298 833 1298; Mul 1266 955 1504; Add 1298 1298 1266;
  Add 1135 1135 1298; Mul 1120 1006 1120; Mul 1298 945 1288; Add 1120 1120 1298; Sub 1135 1135 1120;
  Mul 1377 1012 1377; Mul 1120 973 1020; Add 1377 1377 1120; Sub 1135 1135 1377; Div 1135 1135 938;
  Mul 1222 1397 1222; Sub 1135 1135 1222; Mul 1222 922 1135; Add 1128 1128 1222; Sub 1514 1514 1128;
  Mul 1314 1014 1314; Mul 1322 779 1322; Mul 1128 910 1582; Sub 1322 1322 1128; Mul 1395 211 1395;
  Mul 1128 912 1127; Sub 1395 1395 1128; Sub 1322 1322 1395; Mul 1280 767 1280; Mul 1395 914 1344;
  Add 1280 1280 1395; Add 1322 1322 1280; Mul 1321 775 1321; Mul 1280 916 1374; Sub 1321 1321 1280;
  Sub 1322 1322 1321; Mul 1387 815 1387; Mul 1321 918 1221; Add 1387 1387 1321; Sub 1322 1322 1387;
  Mul 1385 833 1385; Mul 1387 920 1504; Add 1385 1385 1387; Sub 1322 1322 1385; Mul 1052 1006 1052;
  Mul 1385 911 1288; Add 1052 1052 1385; Sub 1322 1322 1052; Mul 1669 1012 1669; Mul 1052 967 1020;
  Add 1669 1669 1052; Sub 1322 1322 1669; Mul 1600 1013 1600; Mul 1669 932 1135; Add 1600 1600 1669;
  Sub 1322 1322 1600; Div 1322 1322 905; Mul 1301 1553 1301; Sub 1322 1322 1301; Mul 1301 895 1322;
  Add 1314 1314 1301; Sub 1514 1514 1314; Mul 1208 1015 1208; Mul 1115 211 1115; Mul 1127 881 1127;
  Sub 1115 1115 1127; Mul 1356 779 1356; Mul 1582 884 1582; Sub 1356 1356 1582; Add 1115 1115 1356;
  Mul 1373 767 1373; Mul 1344 886 1344; Add 1373 1373 1344; Add 1115 1115 1373; Mul 1076 775 1076;
  Mul 1374 888 1374; Sub 1076 1076 1374; Add 1115 1115 1076; Mul 1269 815 1269; Mul 1221 890 1221;
  Add 1269 1269 1221; Add 1115 1115 1269; Mul 1408 833 1408; Mul 1504 892 1504; Add 1408 1408 1504;
  Add 1115 1115 1408; Mul 1025 1006 1025; Mul 1408 882 1288; Add 1025 1025 1408; Sub 1115 1115 1025;
  Mul 1309 1012 1309; Mul 1025 959 1020; Add 1309 1309 1025; Sub 1115 1115 1309; Mul 1202 1013 1202;
  Mul 1309 924 1135; Add 1202 1202 1309; Sub 1115 1115 1202; Mul 1028 1014 1028; Mul 1202 897 1322;
  Add 1028 1028 1202; Sub 1115 1115 1028; Div 1115 1115 65; Mul 1561 1623 1561; Sub 1115 1115 1561;
  Mul 1561 875 1115; Add 1208 1208 1561; Sub 1514 1514 1208; Div 1514 1514 92; Mul 1201 759 1201;
  Sub 1514 1514 1201; Add 1136 1136 1514; Out 2 18 1136; Add 1303 1303 1115; Out 2 19 1303; Add 1485 1485 1322;
  Out 2 20 1485; Add 1092 1092 1135; Out 2 21 1092; Add 1532 1532 1020; Out 2 22 1532; Add 1288 1331 1288;
  Out 2 23 1288; Arg 1288 2 30; Out 2 24 1288; Arg 1532 2 31; Out 2 25 1532; Arg 1020 2 32; Out 2 26 1020].
Definition casadi_f0_772 : list instruction := [
  Arg 1092 2 33; Out 2 27 1092; Arg 1135 2 34; Out 2 28 1135; Arg 1485 2 35; Out 2 29 1485; Arg 1322 2 26;
  Mul 1303 8 1322; Mul 1115 10 1303; Arg 1136 2 29; Mul 1514 16 1136; Mul 1201 21 1514; Mul 1136 15 1136;
  Mul 1208 18 1136; Mul 1561 14 1514; Add 1208 1208 1561; Mul 1561 15 1208; Sub 1201 1201 1561;
  Mul 1561 18 1514; Mul 1028 14 1136; Sub 1561 1561 1028; Mul 1561 16 1561; Mul 1028 17 1136;
  Sub 1561 1561 1028; Sub 1028 1201 1561; Mul 1202 28 1136; Mul 1309 26 1514; Add 1202 1202 1309;
  Mul 1309 1031 1202; Mul 1025 28 1514; Mul 1408 26 1136; Sub 1025 1025 1408; Mul 1408 29 1025;
  Sub 1504 1309 1408; Mul 1504 20 1504; Add 1028 1028 1504; Mul 1408 20 1408; Add 1201 1201 1408;
  Add 1028 1028 1201; Mul 1309 20 1309; Add 1561 1561 1309; Add 1561 1561 1201; Add 1309 1028 1561;
  Mul 1561 19 1561; Arg 1408 2 28; Mul 1504 35 1408; Mul 1269 30 1504; Sub 1561 1561 1269; Mul 1408 19 1408;
  Mul 1269 41 1408; Mul 1221 42 1514; Mul 1076 40 1136; Sub 1221 1221 1076; Mul 1076 43 1514;
  Sub 1221 1221 1076; Mul 1076 44 1025; Add 1221 1221 1076; Mul 1076 35 1221; Add 1269 1269 1076;
  Sub 1561 1561 1269; Mul 1269 19 1561; Mul 1076 38 1504; Sub 1269 1269 1076; Mul 1221 19 1221;
  Mul 1076 41 1504; Sub 1221 1221 1076; Mul 1076 12 1408; Mul 1028 35 1028; Add 1076 1076 1028;
  Sub 1221 1221 1076; Mul 1076 35 1221; Mul 1028 46 1408; Add 1076 1076 1028; Sub 1269 1269 1076;
  Sub 1309 1309 1269; Sub 1309 1309 1201; Mul 1076 50 1202; Mul 1028 1039 1076; Mul 1374 50 1025;
  Mul 1373 19 1374; Mul 1344 49 1504; Sub 1373 1373 1344; Mul 1344 51 1408; Sub 1373 1373 1344;
  Mul 1344 1041 1373; Sub 1356 1028 1344; Mul 1356 37 1356; Add 1309 1309 1356; Mul 1356 49 1408;
  Mul 1582 35 1374; Add 1356 1356 1582; Mul 1582 51 1504; Sub 1356 1356 1582; Mul 1582 64 1356;
  Add 1344 1582 1344; Mul 1344 37 1344; Add 1344 1201 1344; Add 1309 1309 1344; Mul 1127 43 1136;
  Mul 1314 42 1136; Mul 1301 40 1514; Add 1314 1314 1301; Sub 1127 1127 1314; Mul 1314 44 1202;
  Sub 1127 1127 1314; Mul 1314 67 1127; Mul 1301 19 1314; Mul 1600 71 1504; Sub 1301 1301 1600;
  Mul 1600 75 1408; Mul 1208 16 1208; Mul 1669 21 1136; Add 1208 1208 1669; Mul 1202 74 1202; Mul 1025 20 1025;
  Mul 1025 34 1025; Sub 1202 1202 1025; Add 1208 1208 1202; Add 1202 1208 1208; Mul 1025 35 1202;
  Sub 1600 1600 1025; Add 1301 1301 1600; Mul 1600 73 1408; Mul 1025 35 1208; Sub 1600 1600 1025;
  Mul 1025 19 1127; Mul 1669 70 1504; Sub 1025 1025 1669; Add 1600 1600 1025; Sub 1301 1301 1600;
  Mul 1600 76 1076; Mul 1025 37 1356; Mul 1669 57 1025; Sub 1600 1600 1669; Sub 1301 1301 1600;
  Mul 1600 67 1301; Mul 1600 66 1600; Arg 1669 2 27; Mul 1052 53 1669; Mul 1385 77 1052; Sub 1600 1600 1385;
  Mul 1669 66 1669; Mul 1385 11 1669; Mul 1387 53 1309; Add 1385 1385 1387; Sub 1600 1600 1385;
  Mul 1385 53 1600; Mul 1387 78 1669; Add 1385 1385 1387].
Definition casadi_f0_773 : list instruction := [
  Add 1309 1309 1385; Sub 1309 1309 1344; Mul 1387 87 1052; Mul 1321 83 1076; Mul 1280 66 1321;
  Add 1387 1387 1280; Mul 1280 88 1669; Mul 1356 83 1356; Mul 1395 53 1356; Add 1280 1280 1395;
  Add 1387 1387 1280; Mul 1280 1054 1387; Mul 1395 83 1373; Mul 1128 1058 1395; Sub 1222 1280 1128;
  Mul 1222 80 1222; Add 1309 1309 1222; Add 1344 1344 1385; Mul 1385 66 1356; Mul 1222 88 1052;
  Sub 1385 1385 1222; Mul 1222 87 1669; Mul 1377 53 1321; Sub 1222 1222 1377; Add 1385 1385 1222;
  Mul 1222 93 1385; Add 1128 1222 1128; Mul 1128 80 1128; Add 1344 1344 1128; Add 1309 1309 1344;
  Mul 1128 9 1309; Add 1115 1115 1128; Mul 1600 66 1600; Mul 1128 78 1052; Sub 1600 1600 1128;
  Sub 1600 1600 1301; Mul 1301 72 1387; Mul 1128 80 1385; Mul 1377 63 1128; Sub 1301 1301 1377;
  Sub 1600 1600 1301; Mul 1301 67 1600; Mul 1301 8 1301; Mul 1322 9 1322; Mul 1377 97 1322; Sub 1301 1301 1377;
  Add 1115 1115 1301; Mul 1301 9 1115; Mul 1377 84 1303; Add 1301 1301 1377; Sub 1377 1301 1344;
  Mul 1385 104 1385; Mul 1120 8 1385; Mul 1298 103 1322; Sub 1120 1120 1298; Mul 1298 105 1303;
  Mul 1266 104 1387; Mul 1498 9 1266; Sub 1298 1298 1498; Sub 1120 1120 1298; Mul 1298 33 1120;
  Mul 1498 104 1395; Mul 1464 1066 1498; Add 1508 1298 1464; Mul 1508 100 1508; Sub 1377 1377 1508;
  Mul 1115 8 1115; Mul 1508 84 1322; Sub 1115 1115 1508; Sub 1115 1115 1600; Mul 1600 103 1303; Mul 1508 9 1385;
  Add 1600 1600 1508; Mul 1508 105 1322; Mul 1352 8 1266; Add 1508 1508 1352; Sub 1600 1600 1508;
  Mul 1508 96 1600; Mul 1352 100 1120; Mul 1259 117 1352; Sub 1508 1508 1259; Add 1115 1115 1508;
  Mul 1115 67 1115; Mul 1115 114 1115; Arg 1508 2 25; Mul 1259 113 1508; Mul 1695 116 1259; Sub 1115 1115 1695;
  Mul 1508 114 1508; Mul 1695 119 1508; Sub 1309 1309 1301; Sub 1309 1309 1344; Mul 1344 1044 1600;
  Sub 1464 1344 1464; Mul 1464 100 1464; Add 1309 1309 1464; Sub 1309 1309 1377; Mul 1309 113 1309;
  Add 1695 1695 1309; Sub 1115 1115 1695; Mul 1115 113 1115; Mul 1695 118 1508; Add 1115 1115 1695;
  Sub 1377 1377 1115; Mul 1120 120 1120; Mul 1115 114 1120; Mul 1695 60 1259; Sub 1115 1115 1695;
  Mul 1695 121 1508; Mul 1309 120 1600; Mul 1464 113 1309; Add 1695 1695 1464; Add 1115 1115 1695;
  Mul 1695 112 1115; Mul 1464 120 1498; Mul 1301 123 1464; Add 1695 1695 1301; Mul 1695 99 1695;
  Sub 1377 1377 1695; Mul 1115 125 1115; Mul 1115 110 1115; Mul 1695 125 1464; Mul 1695 126 1695;
  Add 1115 1115 1695; Mul 1115 122 1115; Add 1377 1377 1115; Div 1115 1377 92; Mul 1377 6 1377;
  Mul 1695 130 1303; Mul 1221 19 1221; Mul 1301 46 1504; Sub 1221 1221 1301; Mul 1561 35 1561; Mul 1301 38 1408;
  Add 1561 1561 1301; Add 1221 1221 1561; Mul 1025 52 1025; Mul 1561 76 1373; Add 1025 1025 1561;
  Add 1221 1221 1025; Mul 1025 66 1221; Mul 1561 129 1052; Sub 1025 1025 1561; Mul 1561 132 1669;
  Mul 1301 70 1408; Mul 1519 35 1127; Add 1301 1301 1519; Mul 1519 73 1504; Mul 1445 19 1208].
Definition casadi_f0_774 : list instruction := [
  Add 1519 1519 1445; Add 1301 1301 1519; Mul 1202 19 1202; Mul 1519 75 1504; Add 1202 1202 1519;
  Mul 1314 35 1314; Mul 1519 71 1408; Add 1314 1314 1519; Add 1202 1202 1314; Sub 1301 1301 1202;
  Mul 1202 133 1076; Mul 1373 37 1373; Mul 1373 57 1373; Sub 1202 1202 1373; Sub 1301 1301 1202;
  Mul 1202 53 1301; Add 1561 1561 1202; Add 1025 1025 1561; Mul 1128 27 1128; Mul 1561 72 1395;
  Add 1128 1128 1561; Add 1025 1025 1128; Mul 1128 9 1025; Add 1695 1695 1128; Add 1128 1301 1301;
  Mul 1128 66 1128; Mul 1561 136 1052; Sub 1128 1128 1561; Mul 1561 129 1669; Mul 1202 53 1221;
  Add 1561 1561 1202; Sub 1128 1128 1561; Mul 1561 66 1301; Mul 1202 132 1052; Sub 1561 1561 1202;
  Sub 1128 1128 1561; Mul 1387 138 1387; Mul 1561 80 1395; Mul 1561 63 1561; Sub 1387 1387 1561;
  Sub 1128 1128 1387; Add 1387 1128 1128; Mul 1387 8 1387; Mul 1561 139 1322; Sub 1387 1387 1561;
  Add 1695 1695 1387; Mul 1387 8 1128; Mul 1561 137 1322; Sub 1387 1387 1561; Sub 1695 1695 1387;
  Mul 1600 140 1600; Mul 1387 100 1498; Mul 1387 117 1387; Sub 1600 1600 1387; Add 1695 1695 1600;
  Mul 1600 141 1464; Mul 1600 121 1600; Mul 1387 142 1309; Add 1600 1600 1387; Sub 1695 1695 1600;
  Mul 1695 114 1695; Mul 1600 134 1259; Sub 1695 1695 1600; Mul 1600 145 1508; Mul 1387 8 1025;
  Mul 1561 130 1322; Sub 1387 1387 1561; Mul 1561 137 1303; Mul 1202 9 1128; Add 1561 1561 1202;
  Sub 1387 1387 1561; Mul 1352 111 1352; Mul 1561 96 1498; Add 1352 1352 1561; Add 1387 1387 1352;
  Mul 1352 141 1120; Mul 1352 124 1352; Mul 1464 146 1464; Add 1352 1352 1464; Sub 1387 1387 1352;
  Mul 1387 113 1387; Add 1600 1600 1387; Sub 1695 1695 1600; Mul 1600 1073 1695; Add 1377 1377 1600;
  Mul 1600 150 1508; Mul 1387 149 1303; Mul 1352 148 1498; Mul 1464 147 1266; Mul 1561 109 1464;
  Sub 1352 1352 1561; Add 1128 1128 1352; Mul 1352 9 1128; Add 1387 1387 1352; Mul 1498 151 1498;
  Mul 1352 147 1385; Mul 1561 109 1352; Add 1498 1498 1561; Add 1025 1025 1498; Mul 1498 8 1025;
  Mul 1561 152 1322; Sub 1498 1498 1561; Sub 1387 1387 1498; Mul 1498 148 1303; Mul 1561 9 1464;
  Sub 1498 1498 1561; Mul 1561 8 1352; Mul 1202 151 1322; Sub 1561 1561 1202; Sub 1498 1498 1561;
  Mul 1561 108 1498; Add 1387 1387 1561; Mul 1387 113 1387; Add 1600 1600 1387; Mul 1387 152 1303;
  Mul 1025 9 1025; Add 1387 1387 1025; Mul 1128 8 1128; Mul 1025 149 1322; Sub 1128 1128 1025;
  Add 1387 1387 1128; Mul 1128 151 1303; Mul 1025 9 1352; Add 1128 1128 1025; Mul 1025 148 1322;
  Mul 1561 8 1464; Add 1025 1025 1561; Sub 1128 1128 1025; Mul 1128 108 1128; Add 1387 1387 1128;
  Mul 1387 114 1387; Mul 1128 155 1259; Sub 1387 1387 1128; Add 1600 1600 1387; Mul 1387 1050 1600;
  Add 1377 1377 1387; Mul 1387 159 1303; Mul 1128 156 1356; Mul 1128 82 1128; Mul 1025 157 1395;
  Add 1128 1128 1025; Sub 1221 1221 1128; Mul 1128 66 1221; Mul 1025 158 1052; Sub 1128 1128 1025;
  Mul 1025 161 1669; Mul 1395 156 1395; Mul 1395 87 1395; Mul 1561 160 1321].
Definition casadi_f0_775 : list instruction := [
  Sub 1395 1395 1561; Sub 1301 1301 1395; Mul 1395 53 1301; Add 1025 1025 1395; Add 1128 1128 1025;
  Mul 1025 9 1128; Add 1387 1387 1025; Mul 1301 66 1301; Mul 1025 161 1052; Sub 1301 1301 1025;
  Mul 1025 158 1669; Mul 1221 53 1221; Add 1025 1025 1221; Sub 1301 1301 1025; Mul 1025 8 1301;
  Mul 1221 163 1322; Sub 1025 1025 1221; Add 1387 1387 1025; Mul 1025 167 1669; Mul 1221 166 1356;
  Mul 1395 53 1221; Add 1025 1025 1395; Mul 1395 164 1052; Mul 1561 156 1321; Mul 1202 66 1561;
  Add 1395 1395 1202; Sub 1025 1025 1395; Mul 1395 8 1025; Mul 1202 165 1322; Sub 1395 1395 1202;
  Mul 1202 169 1303; Mul 1221 66 1221; Mul 1373 167 1052; Sub 1221 1221 1373; Mul 1373 164 1669;
  Mul 1561 53 1561; Sub 1373 1373 1561; Sub 1221 1221 1373; Mul 1373 9 1221; Add 1202 1202 1373;
  Sub 1395 1395 1202; Mul 1395 108 1395; Sub 1387 1387 1395; Mul 1387 114 1387; Mul 1395 162 1259;
  Sub 1387 1387 1395; Mul 1395 170 1508; Mul 1128 8 1128; Mul 1202 159 1322; Sub 1128 1128 1202;
  Mul 1202 163 1303; Mul 1301 9 1301; Add 1202 1202 1301; Sub 1128 1128 1202; Mul 1202 165 1303;
  Mul 1301 9 1025; Add 1202 1202 1301; Mul 1301 8 1221; Mul 1373 169 1322; Sub 1301 1301 1373;
  Add 1202 1202 1301; Mul 1301 108 1202; Add 1128 1128 1301; Mul 1128 113 1128; Add 1395 1395 1128;
  Sub 1387 1387 1395; Mul 1395 1070 1387; Add 1377 1377 1395; Mul 1395 179 1303; Mul 1128 177 1669;
  Mul 1301 174 1374; Mul 1374 173 1374; Mul 1373 49 1374; Add 1301 1301 1373; Add 1301 1301 1201;
  Mul 1373 174 1408; Mul 1561 35 1374; Add 1373 1373 1561; Mul 1561 176 1504; Sub 1373 1373 1561;
  Mul 1561 62 1373; Mul 1314 176 1408; Mul 1519 19 1374; Mul 1445 174 1504; Sub 1519 1519 1445;
  Sub 1314 1314 1519; Mul 1519 48 1314; Sub 1561 1561 1519; Add 1561 1301 1561; Mul 1519 53 1561;
  Add 1128 1128 1519; Mul 1519 176 1076; Sub 1127 1127 1519; Mul 1519 19 1127; Mul 1445 180 1504;
  Sub 1519 1519 1445; Mul 1445 182 1408; Mul 1374 56 1374; Mul 1076 174 1076; Sub 1374 1374 1076;
  Sub 1374 1374 1208; Mul 1208 35 1374; Add 1445 1445 1208; Add 1519 1519 1445; Mul 1445 55 1373;
  Add 1519 1519 1445; Mul 1445 66 1519; Mul 1208 181 1052; Sub 1445 1445 1208; Sub 1128 1128 1445;
  Mul 1445 86 1373; Sub 1128 1128 1445; Mul 1445 9 1128; Add 1395 1395 1445; Mul 1445 181 1669;
  Mul 1519 53 1519; Add 1445 1445 1519; Mul 1561 66 1561; Mul 1519 177 1052; Sub 1561 1561 1519;
  Add 1445 1445 1561; Mul 1561 91 1373; Add 1445 1445 1561; Mul 1561 8 1445; Mul 1519 184 1322;
  Sub 1561 1561 1519; Add 1395 1395 1561; Mul 1373 102 1373; Mul 1561 66 1314; Mul 1519 178 1052;
  Sub 1561 1561 1519; Mul 1519 8 1561; Mul 1208 185 1322; Sub 1519 1519 1208; Mul 1208 187 1303;
  Mul 1076 178 1669; Mul 1062 53 1314; Add 1076 1076 1062; Mul 1062 9 1076; Add 1208 1208 1062;
  Add 1519 1519 1208; Mul 1519 108 1519; Sub 1373 1373 1519; Add 1395 1395 1373; Mul 1395 114 1395;
  Mul 1373 183 1259; Sub 1395 1395 1373; Mul 1373 186 1508; Mul 1128 8 1128].
Definition casadi_f0_776 : list instruction := [
  Mul 1519 179 1322; Sub 1128 1128 1519; Mul 1519 184 1303; Mul 1445 9 1445; Add 1519 1519 1445;
  Sub 1128 1128 1519; Mul 1519 185 1303; Mul 1445 9 1561; Add 1519 1519 1445; Mul 1445 8 1076;
  Mul 1208 187 1322; Sub 1445 1445 1208; Sub 1519 1519 1445; Mul 1445 108 1519; Add 1128 1128 1445;
  Mul 1128 113 1128; Add 1373 1373 1128; Sub 1395 1395 1373; Mul 1373 1059 1395; Add 1377 1377 1373;
  Mul 1373 199 1303; Mul 1128 196 1408; Mul 1445 197 1514; Mul 1208 195 1136; Sub 1445 1445 1208;
  Mul 1208 190 1136; Mul 1062 192 1514; Add 1208 1208 1062; Mul 1062 198 1208; Add 1445 1445 1062;
  Mul 1062 35 1445; Add 1128 1128 1062; Mul 1062 189 1504; Mul 1592 25 1208; Mul 1276 190 1514;
  Mul 1183 192 1136; Sub 1276 1276 1183; Mul 1183 32 1276; Add 1592 1592 1183; Mul 1183 19 1592;
  Add 1062 1062 1183; Sub 1128 1128 1062; Mul 1062 48 1208; Mul 1183 19 1276; Mul 1635 194 1504;
  Sub 1183 1183 1635; Mul 1635 55 1183; Add 1062 1062 1635; Sub 1128 1128 1062; Mul 1062 66 1128;
  Mul 1635 193 1052; Sub 1062 1062 1635; Mul 1635 202 1669; Mul 1117 198 1276; Mul 1359 197 1136;
  Mul 1544 195 1514; Add 1359 1359 1544; Sub 1117 1117 1359; Mul 1359 62 1183; Mul 1544 194 1408;
  Mul 1276 35 1276; Add 1544 1544 1276; Mul 1276 48 1544; Sub 1359 1359 1276; Add 1359 1117 1359;
  Mul 1276 53 1359; Add 1635 1635 1276; Add 1062 1062 1635; Mul 1635 86 1183; Sub 1062 1062 1635;
  Mul 1635 9 1062; Add 1373 1373 1635; Mul 1359 66 1359; Mul 1635 202 1052; Sub 1359 1359 1635;
  Mul 1635 193 1669; Mul 1128 53 1128; Add 1635 1635 1128; Sub 1359 1359 1635; Mul 1635 91 1183;
  Add 1359 1359 1635; Mul 1635 8 1359; Mul 1128 205 1322; Sub 1635 1635 1128; Add 1373 1373 1635;
  Mul 1183 102 1183; Mul 1635 66 1544; Mul 1128 203 1052; Sub 1635 1635 1128; Mul 1128 191 1669;
  Mul 1276 53 1208; Sub 1128 1128 1276; Add 1635 1635 1128; Mul 1128 8 1635; Mul 1276 206 1322;
  Sub 1128 1128 1276; Mul 1276 208 1303; Mul 1531 191 1052; Mul 1605 66 1208; Add 1531 1531 1605;
  Mul 1605 203 1669; Mul 1533 53 1544; Add 1605 1605 1533; Add 1531 1531 1605; Mul 1605 9 1531;
  Sub 1276 1276 1605; Sub 1128 1128 1276; Mul 1128 108 1128; Sub 1183 1183 1128; Add 1373 1373 1183;
  Mul 1373 114 1373; Mul 1183 204 1259; Sub 1373 1373 1183; Mul 1183 207 1508; Mul 1062 8 1062;
  Mul 1128 199 1322; Sub 1062 1062 1128; Mul 1128 205 1303; Mul 1359 9 1359; Add 1128 1128 1359;
  Sub 1062 1062 1128; Mul 1128 206 1303; Mul 1359 9 1635; Add 1128 1128 1359; Mul 1359 208 1322;
  Mul 1276 8 1531; Add 1359 1359 1276; Sub 1128 1128 1359; Mul 1359 108 1128; Add 1062 1062 1359;
  Mul 1062 113 1062; Add 1183 1183 1062; Sub 1373 1373 1183; Mul 1183 1043 1373; Add 1377 1377 1183;
  Div 1377 1377 1085; Mul 1183 1072 1377; Sub 1115 1115 1183; Mul 1183 211 1115; Mul 1062 216 1508;
  Arg 1359 2 24; Mul 1276 215 1359; Mul 1605 113 1276; Sub 1062 1062 1605; Mul 1605 218 1062; Mul 1533 114 1288;
  Mul 1049 0 1259; Sub 1533 1533 1049; Mul 1049 217 1533].
Definition casadi_f0_777 : list instruction := [
  Add 1605 1605 1049; Mul 1359 216 1359; Mul 1049 1 1359; Mul 1133 215 1532; Add 1049 1049 1133;
  Sub 1605 1605 1049; Mul 1049 0 1508; Mul 1133 113 1288; Add 1049 1049 1133; Mul 1133 220 1049;
  Mul 1230 114 1276; Mul 1279 216 1259; Add 1230 1230 1279; Mul 1279 221 1230; Sub 1133 1133 1279;
  Sub 1605 1605 1133; Mul 1133 214 1605; Mul 1279 213 1133; Mul 1279 212 1279; Mul 1701 225 1279;
  Mul 1021 114 1359; Mul 1159 215 1259; Sub 1021 1021 1159; Mul 1159 101 1021; Mul 1079 107 1276;
  Sub 1159 1159 1079; Mul 1079 223 1159; Add 1242 1701 1079; Mul 1552 216 1532; Mul 1089 1 1276;
  Sub 1552 1552 1089; Mul 1089 113 1359; Mul 1234 215 1508; Add 1089 1089 1234; Mul 1234 218 1089;
  Mul 1651 228 1533; Add 1234 1234 1651; Add 1552 1552 1234; Mul 1234 221 1021; Mul 1651 224 1049;
  Add 1234 1234 1651; Sub 1552 1552 1234; Mul 1234 214 1552; Mul 1651 213 1234; Mul 1651 212 1651;
  Mul 1538 231 1651; Mul 1042 101 1230; Mul 1427 107 1359; Add 1042 1042 1427; Mul 1427 230 1042;
  Sub 1538 1538 1427; Sub 1427 1242 1538; Add 1079 1079 1701; Sub 1538 1079 1538; Add 1701 1427 1538;
  Mul 1209 144 1508; Mul 1509 215 1209; Mul 1142 240 1359; Add 1509 1509 1142; Mul 1142 236 1259;
  Mul 1421 238 1508; Add 1142 1142 1421; Mul 1421 220 1142; Mul 1319 237 1230; Add 1421 1421 1319;
  Sub 1509 1509 1421; Mul 1421 115 1276; Add 1509 1509 1421; Mul 1421 212 1042; Mul 1319 242 1421;
  Mul 1654 101 1508; Mul 1564 241 1654; Add 1319 1319 1564; Add 1319 1509 1319; Mul 1564 244 1319;
  Mul 1459 213 1552; Mul 1489 243 1459; Add 1329 1564 1489; Mul 1110 237 1021; Mul 1549 224 1142;
  Sub 1110 1110 1549; Mul 1209 216 1209; Mul 1549 240 1276; Sub 1209 1209 1549; Sub 1110 1110 1209;
  Mul 1209 115 1359; Sub 1110 1110 1209; Mul 1209 212 1159; Mul 1209 242 1209; Mul 1549 247 1654;
  Sub 1209 1209 1549; Sub 1209 1110 1209; Mul 1549 249 1209; Mul 1365 213 1605; Mul 1406 248 1365;
  Add 1494 1549 1406; Sub 1473 1329 1494; Sub 1701 1701 1473; Add 1406 1406 1549; Add 1489 1489 1564;
  Sub 1564 1406 1489; Add 1701 1701 1564; Mul 1564 9 1062; Mul 1549 217 1303; Add 1564 1564 1549;
  Mul 1549 8 1230; Mul 1473 220 1322; Add 1549 1549 1473; Sub 1564 1564 1549; Mul 1549 254 1564;
  Mul 1473 218 1303; Mul 1081 9 1533; Add 1473 1473 1081; Mul 1081 8 1049; Mul 1018 221 1322;
  Sub 1081 1081 1018; Sub 1473 1473 1081; Mul 1081 253 1473; Add 1549 1549 1081; Mul 1062 8 1062;
  Mul 1081 217 1322; Sub 1062 1062 1081; Mul 1081 220 1303; Mul 1018 9 1230; Sub 1081 1081 1018;
  Sub 1062 1062 1081; Mul 1081 257 1062; Mul 1018 221 1303; Mul 1451 9 1049; Add 1018 1018 1451;
  Mul 1451 8 1533; Mul 1362 218 1322; Sub 1451 1451 1362; Add 1018 1018 1451; Mul 1451 256 1018;
  Add 1081 1081 1451; Mul 1451 259 1359; Sub 1362 1532 1020; Mul 1272 215 1362; Add 1451 1451 1272;
  Sub 1081 1081 1451; Add 1549 1549 1081; Mul 1081 213 1549; Mul 1451 276 1081; Mul 1272 114 1303;
  Mul 1475 9 1259; Sub 1272 1272 1475; Mul 1475 8 1508; Mul 1625 113 1322].
Definition casadi_f0_778 : list instruction := [
  Sub 1475 1475 1625; Sub 1272 1272 1475; Mul 1475 260 1272; Mul 1625 9 1508; Mul 1499 113 1303;
  Add 1625 1625 1499; Mul 1499 8 1259; Mul 1674 114 1322; Add 1499 1499 1674; Sub 1625 1625 1499;
  Mul 1499 263 1625; Add 1475 1475 1499; Mul 1499 265 1475; Mul 1674 8 1021; Mul 1491 224 1322;
  Sub 1674 1674 1491; Mul 1491 9 1089; Mul 1462 228 1303; Add 1491 1491 1462; Add 1674 1674 1491;
  Mul 1491 262 1674; Add 1499 1499 1491; Mul 1491 127 1272; Mul 1462 268 1625; Add 1491 1491 1462;
  Mul 1462 216 1491; Mul 1367 267 1276; Sub 1462 1462 1367; Add 1499 1499 1462; Mul 1462 135 1564;
  Mul 1367 95 1359; Add 1462 1462 1367; Sub 1499 1499 1462; Mul 1462 102 1021; Mul 1367 108 1276;
  Sub 1462 1462 1367; Mul 1367 79 1674; Mul 1423 8 1089; Mul 1410 228 1322; Sub 1423 1423 1410; Mul 1410 9 1021;
  Mul 1565 224 1303; Add 1410 1410 1565; Sub 1423 1423 1410; Mul 1410 85 1423; Mul 1565 81 1276;
  Sub 1410 1410 1565; Add 1367 1367 1410; Add 1367 1462 1367; Mul 1410 269 1367; Mul 1410 275 1410;
  Mul 1565 79 1272; Mul 1126 85 1625; Add 1565 1565 1126; Mul 1126 102 1508; Sub 1565 1565 1126;
  Mul 1237 272 1565; Add 1410 1410 1237; Sub 1410 1499 1410; Mul 1237 258 1410; Add 1650 1451 1237;
  Mul 1102 254 1674; Mul 1200 265 1473; Add 1102 1102 1200; Mul 1200 216 1362; Mul 1389 259 1276;
  Sub 1200 1200 1389; Mul 1389 257 1423; Mul 1121 273 1018; Add 1389 1389 1121; Add 1200 1200 1389;
  Add 1102 1102 1200; Mul 1200 213 1102; Mul 1389 284 1200; Mul 1121 253 1475; Mul 1384 262 1564;
  Add 1121 1121 1384; Mul 1491 215 1491; Mul 1384 267 1359; Add 1491 1491 1384; Sub 1121 1121 1491;
  Mul 1491 95 1276; Mul 1384 135 1674; Add 1491 1491 1384; Add 1121 1121 1491; Mul 1491 79 1564;
  Mul 1384 85 1062; Mul 1487 81 1359; Sub 1384 1384 1487; Add 1491 1491 1384; Mul 1384 102 1230;
  Mul 1487 108 1359; Add 1384 1384 1487; Sub 1491 1491 1384; Mul 1487 269 1491; Mul 1703 275 1487;
  Mul 1353 283 1565; Add 1703 1703 1353; Sub 1703 1121 1703; Mul 1353 279 1703; Add 1386 1389 1353;
  Sub 1631 1650 1386; Mul 1203 292 1565; Mul 1602 288 1625; Mul 1228 287 1303; Mul 1488 108 1533;
  Mul 1492 9 1488; Add 1228 1228 1492; Mul 1492 102 1532; Mul 1417 108 1049; Add 1492 1492 1417;
  Mul 1417 8 1492; Mul 1261 289 1322; Sub 1417 1417 1261; Sub 1228 1228 1417; Mul 1417 264 1228;
  Add 1602 1602 1417; Mul 1417 291 1272; Mul 1488 8 1488; Mul 1261 287 1322; Sub 1488 1488 1261;
  Mul 1261 289 1303; Mul 1492 9 1492; Add 1261 1261 1492; Add 1488 1488 1261; Mul 1261 261 1488;
  Add 1417 1417 1261; Sub 1602 1602 1417; Mul 1417 281 1102; Mul 1261 278 1384; Sub 1417 1417 1261;
  Mul 1261 255 1462; Mul 1492 270 1549; Add 1261 1261 1492; Sub 1417 1417 1261; Add 1602 1602 1417;
  Mul 1417 213 1602; Mul 1417 269 1417; Mul 1261 275 1417; Add 1492 1203 1261; Mul 1313 288 1062;
  Mul 1667 256 1228; Add 1313 1313 1667; Mul 1667 295 1359; Mul 1677 102 1533; Mul 1093 215 1677;
  Add 1667 1667 1093; Sub 1313 1313 1667; Mul 1667 291 1564].
Definition casadi_f0_779 : list instruction := [
  Mul 1093 253 1488; Add 1667 1667 1093; Sub 1313 1313 1667; Mul 1667 296 1462; Mul 1093 254 1272;
  Mul 1119 261 1473; Add 1093 1093 1119; Mul 1119 257 1625; Mul 1430 264 1018; Add 1119 1119 1430;
  Add 1093 1093 1119; Mul 1119 270 1093; Add 1667 1667 1119; Mul 1119 274 1102; Mul 1430 278 1126;
  Sub 1119 1119 1430; Sub 1667 1667 1119; Add 1313 1313 1667; Mul 1667 213 1313; Mul 1667 269 1667;
  Mul 1119 282 1667; Mul 1430 297 1491; Add 1525 1119 1430; Mul 1388 216 1677; Mul 1671 295 1276;
  Sub 1388 1388 1671; Mul 1671 288 1423; Mul 1589 273 1228; Add 1671 1671 1589; Add 1388 1388 1671;
  Mul 1671 291 1674; Mul 1589 265 1488; Add 1671 1671 1589; Sub 1388 1388 1671; Mul 1671 274 1549;
  Mul 1589 255 1126; Sub 1671 1671 1589; Mul 1589 281 1093; Mul 1206 296 1384; Sub 1589 1589 1206;
  Sub 1671 1671 1589; Add 1388 1388 1671; Mul 1671 213 1388; Mul 1671 269 1671; Mul 1589 271 1671;
  Mul 1206 300 1367; Add 1219 1589 1206; Add 1261 1261 1203; Add 1203 1219 1261; Add 1525 1525 1203;
  Sub 1398 1492 1525; Add 1430 1430 1119; Add 1206 1206 1589; Add 1492 1206 1492; Add 1430 1430 1492;
  Sub 1261 1261 1430; Add 1398 1398 1261; Add 1353 1353 1389; Add 1237 1237 1451; Sub 1451 1353 1237;
  Add 1398 1398 1451; Sub 1631 1631 1398; Mul 1398 66 1564; Mul 1451 253 1052; Sub 1398 1398 1451;
  Mul 1451 53 1062; Mul 1389 256 1669; Add 1451 1451 1389; Sub 1398 1398 1451; Mul 1451 308 1398;
  Mul 1389 66 1473; Mul 1261 254 1052; Sub 1389 1389 1261; Mul 1261 257 1669; Mul 1589 53 1018;
  Add 1261 1261 1589; Sub 1389 1389 1261; Mul 1261 304 1389; Add 1451 1451 1261; Mul 1261 53 1564;
  Mul 1589 253 1669; Add 1261 1261 1589; Mul 1589 66 1062; Mul 1119 256 1052; Sub 1589 1589 1119;
  Add 1261 1261 1589; Mul 1589 311 1261; Mul 1119 254 1669; Mul 1083 53 1473; Add 1119 1119 1083;
  Mul 1083 66 1018; Mul 1019 257 1052; Sub 1083 1083 1019; Add 1119 1119 1083; Mul 1083 310 1119;
  Add 1589 1589 1083; Mul 1083 313 1359; Add 1019 1092 1362; Mul 1611 215 1019; Add 1083 1083 1611;
  Sub 1589 1589 1083; Add 1451 1451 1589; Mul 1589 213 1451; Mul 1083 330 1589; Mul 1611 66 1272;
  Mul 1640 261 1052; Sub 1611 1611 1640; Mul 1640 53 1625; Mul 1180 264 1669; Add 1640 1640 1180;
  Sub 1611 1611 1640; Mul 1640 314 1611; Mul 1180 53 1272; Mul 1123 261 1669; Add 1180 1180 1123;
  Mul 1123 66 1625; Mul 1422 264 1052; Sub 1123 1123 1422; Add 1180 1180 1123; Mul 1123 317 1180;
  Add 1640 1640 1123; Mul 1123 319 1640; Mul 1422 66 1674; Mul 1402 265 1052; Sub 1422 1422 1402;
  Mul 1402 53 1423; Mul 1091 273 1669; Add 1402 1402 1091; Sub 1422 1422 1402; Mul 1402 316 1422;
  Add 1123 1123 1402; Mul 1402 128 1611; Mul 1091 322 1180; Add 1402 1402 1091; Mul 1091 216 1402;
  Mul 1692 321 1276; Sub 1091 1091 1692; Add 1123 1123 1091; Mul 1091 131 1398; Mul 1692 68 1359;
  Add 1091 1091 1692; Sub 1123 1123 1091; Mul 1091 91 1674; Mul 1692 86 1423; Add 1091 1091 1692;
  Add 1091 1462 1091; Mul 1692 61 1422; Mul 1193 53 1674; Mul 1376 265 1669].
Definition casadi_f0_780 : list instruction := [
  Add 1193 1193 1376; Mul 1376 66 1423; Mul 1506 273 1052; Sub 1376 1376 1506; Add 1193 1193 1376;
  Mul 1376 54 1193; Mul 1506 47 1276; Sub 1376 1376 1506; Add 1692 1692 1376; Add 1692 1091 1692;
  Mul 1376 323 1692; Mul 1376 329 1376; Mul 1506 91 1272; Mul 1625 86 1625; Add 1506 1506 1625;
  Sub 1506 1506 1126; Mul 1625 61 1611; Mul 1223 54 1180; Add 1625 1625 1223; Add 1625 1506 1625;
  Mul 1223 326 1625; Add 1376 1376 1223; Sub 1376 1123 1376; Mul 1223 312 1376; Add 1665 1083 1223;
  Mul 1315 308 1422; Mul 1642 319 1389; Add 1315 1315 1642; Mul 1642 216 1019; Mul 1300 313 1276;
  Sub 1642 1642 1300; Mul 1300 311 1193; Mul 1664 327 1119; Add 1300 1300 1664; Add 1642 1642 1300;
  Add 1315 1315 1642; Mul 1642 213 1315; Mul 1300 338 1642; Mul 1664 304 1640; Mul 1681 316 1398;
  Add 1664 1664 1681; Mul 1402 215 1402; Mul 1681 321 1359; Add 1402 1402 1681; Sub 1664 1664 1402;
  Mul 1402 68 1276; Mul 1681 131 1422; Add 1402 1402 1681; Add 1664 1664 1402; Mul 1402 91 1564;
  Mul 1062 86 1062; Add 1402 1402 1062; Sub 1402 1402 1384; Mul 1062 61 1398; Mul 1681 54 1261;
  Mul 1443 47 1359; Sub 1681 1681 1443; Add 1062 1062 1681; Add 1062 1402 1062; Mul 1681 323 1062;
  Mul 1443 329 1681; Mul 1588 337 1625; Add 1443 1443 1588; Sub 1443 1664 1443; Mul 1588 333 1443;
  Add 1185 1300 1588; Sub 1400 1665 1185; Mul 1482 346 1625; Mul 1510 342 1611; Mul 1456 86 1362;
  Sub 1456 1456 1488; Mul 1488 66 1456; Mul 1638 341 1052; Sub 1488 1488 1638; Mul 1638 343 1669;
  Mul 1362 91 1362; Sub 1228 1228 1362; Mul 1362 53 1228; Add 1638 1638 1362; Sub 1488 1488 1638;
  Mul 1638 315 1488; Add 1510 1510 1638; Mul 1638 345 1180; Mul 1362 341 1669; Mul 1456 53 1456;
  Add 1362 1362 1456; Mul 1228 66 1228; Mul 1456 343 1052; Sub 1228 1228 1456; Add 1362 1362 1228;
  Mul 1228 318 1362; Add 1638 1638 1228; Add 1510 1510 1638; Mul 1638 332 1402; Mul 1228 335 1315;
  Add 1638 1638 1228; Mul 1228 309 1091; Mul 1456 324 1451; Add 1228 1228 1456; Sub 1638 1638 1228;
  Add 1510 1510 1638; Mul 1638 213 1510; Mul 1638 323 1638; Mul 1228 329 1638; Add 1456 1482 1228;
  Mul 1689 342 1398; Mul 1450 304 1488; Add 1689 1689 1450; Mul 1450 345 1261; Mul 1131 310 1362;
  Add 1450 1450 1131; Mul 1131 350 1359; Mul 1473 86 1473; Mul 1018 91 1018; Sub 1473 1473 1018;
  Sub 1677 1677 1473; Mul 1473 215 1677; Add 1131 1131 1473; Sub 1450 1450 1131; Add 1689 1689 1450;
  Mul 1450 349 1091; Mul 1131 308 1611; Mul 1473 315 1389; Add 1131 1131 1473; Mul 1473 311 1180;
  Mul 1018 318 1119; Add 1473 1473 1018; Add 1131 1131 1473; Mul 1473 324 1131; Add 1450 1450 1473;
  Mul 1473 332 1506; Mul 1018 328 1315; Add 1473 1473 1018; Sub 1450 1450 1473; Add 1689 1689 1450;
  Mul 1450 213 1689; Mul 1450 323 1450; Mul 1473 336 1450; Mul 1018 351 1062; Add 1327 1473 1018;
  Mul 1493 342 1422; Mul 1167 319 1488; Add 1493 1493 1167; Mul 1167 216 1677; Mul 1396 350 1276;
  Sub 1167 1167 1396; Mul 1396 345 1193; Mul 1182 327 1362; Add 1396 1396 1182].
Definition casadi_f0_781 : list instruction := [
  Add 1167 1167 1396; Add 1493 1493 1167; Mul 1167 309 1506; Mul 1396 328 1451; Add 1167 1167 1396;
  Mul 1396 349 1402; Mul 1182 335 1131; Add 1396 1396 1182; Sub 1167 1167 1396; Add 1493 1493 1167;
  Mul 1167 213 1493; Mul 1167 323 1167; Mul 1396 325 1167; Mul 1182 354 1692; Add 1429 1396 1182;
  Add 1228 1228 1482; Add 1482 1429 1228; Add 1327 1327 1482; Sub 1113 1456 1327; Add 1018 1018 1473;
  Add 1182 1182 1396; Add 1456 1182 1456; Add 1018 1018 1456; Sub 1228 1228 1018; Add 1113 1113 1228;
  Add 1588 1588 1300; Add 1223 1223 1083; Sub 1083 1588 1223; Add 1113 1113 1083; Sub 1400 1400 1113;
  Mul 1113 19 1398; Mul 1083 304 1504; Sub 1113 1113 1083; Mul 1083 35 1359; Mul 1300 215 1408;
  Add 1083 1083 1300; Add 1113 1113 1083; Mul 1083 362 1113; Mul 1300 19 1389; Mul 1228 308 1504;
  Sub 1300 1300 1228; Mul 1228 313 1408; Mul 1396 35 1019; Add 1228 1228 1396; Sub 1300 1300 1228;
  Mul 1228 358 1300; Add 1083 1083 1228; Mul 1228 35 1398; Mul 1396 304 1408; Add 1228 1228 1396;
  Mul 1396 19 1359; Mul 1473 215 1504; Sub 1396 1396 1473; Sub 1228 1228 1396; Mul 1396 365 1228;
  Mul 1473 308 1408; Mul 1156 35 1389; Add 1473 1473 1156; Mul 1156 19 1019; Mul 1440 313 1504;
  Sub 1156 1156 1440; Add 1473 1473 1156; Mul 1156 364 1473; Add 1396 1396 1156; Mul 1156 367 1261;
  Sub 1440 1119 1135; Mul 1330 310 1440; Add 1156 1156 1330; Add 1396 1396 1156; Add 1083 1083 1396;
  Mul 1396 213 1083; Mul 1156 385 1396; Mul 1330 19 1611; Mul 1345 315 1504; Sub 1330 1330 1345;
  Mul 1345 368 1330; Mul 1447 35 1611; Mul 1409 315 1408; Add 1447 1447 1409; Mul 1409 39 1447;
  Mul 1364 373 1180; Add 1409 1409 1364; Add 1345 1345 1409; Mul 1409 372 1345; Mul 1364 19 1422;
  Mul 1271 319 1504; Sub 1364 1364 1271; Mul 1271 216 1408; Mul 1507 35 1276; Sub 1271 1271 1507;
  Sub 1364 1364 1271; Mul 1271 370 1364; Add 1409 1409 1271; Mul 1271 39 1330; Mul 1507 376 1447;
  Add 1271 1271 1507; Mul 1507 377 1271; Mul 1308 35 1422; Mul 1537 319 1408; Add 1308 1308 1537;
  Mul 1537 19 1276; Mul 1679 216 1504; Add 1537 1537 1679; Sub 1308 1308 1537; Mul 1537 375 1308;
  Add 1507 1507 1537; Add 1409 1409 1507; Mul 1507 69 1228; Add 1409 1409 1507; Mul 1507 62 1422;
  Mul 1537 55 1193; Mul 1679 48 1276; Sub 1537 1537 1679; Add 1507 1507 1537; Add 1507 1091 1507;
  Mul 1537 380 1364; Mul 1679 24 1308; Mul 1166 31 1193; Add 1679 1679 1166; Add 1537 1537 1679;
  Add 1537 1507 1537; Mul 1679 378 1537; Mul 1679 384 1679; Mul 1166 62 1611; Mul 1176 55 1180;
  Add 1166 1166 1176; Add 1166 1506 1166; Mul 1176 380 1330; Mul 1548 24 1447; Mul 1469 31 1180;
  Add 1548 1548 1469; Add 1176 1176 1548; Add 1176 1166 1176; Mul 1548 382 1176; Add 1679 1679 1548;
  Sub 1679 1409 1679; Mul 1548 366 1679; Add 1469 1156 1548; Mul 1351 362 1364; Mul 1412 372 1300;
  Add 1351 1351 1412; Mul 1412 365 1308; Mul 1380 377 1473; Add 1412 1412 1380; Mul 1380 367 1193;
  Mul 1591 327 1440; Add 1380 1380 1591; Add 1412 1412 1380; Add 1351 1351 1412].
Definition casadi_f0_782 : list instruction := [
  Mul 1412 213 1351; Mul 1380 393 1412; Mul 1591 358 1345; Mul 1662 370 1113; Add 1591 1591 1662;
  Mul 1662 364 1271; Mul 1244 375 1228; Add 1662 1662 1244; Add 1591 1591 1662; Mul 1662 69 1308;
  Sub 1591 1591 1662; Mul 1662 62 1398; Mul 1244 55 1261; Mul 1627 48 1359; Sub 1244 1244 1627;
  Add 1662 1662 1244; Add 1662 1402 1662; Mul 1244 380 1113; Mul 1627 24 1228; Mul 1140 31 1261;
  Add 1627 1627 1140; Add 1244 1244 1627; Add 1244 1662 1244; Mul 1627 378 1244; Mul 1140 384 1627;
  Mul 1358 392 1176; Add 1140 1140 1358; Sub 1140 1591 1140; Mul 1358 388 1140; Add 1111 1380 1358;
  Sub 1526 1469 1111; Mul 1139 401 1176; Mul 1109 397 1330; Mul 1164 48 1119; Mul 1335 55 1019;
  Sub 1164 1164 1335; Sub 1488 1488 1164; Mul 1164 19 1488; Mul 1335 396 1504; Sub 1164 1164 1335;
  Mul 1335 398 1408; Mul 1691 55 1389; Mul 1119 62 1119; Sub 1691 1691 1119; Sub 1677 1677 1691;
  Mul 1691 35 1677; Add 1335 1335 1691; Sub 1164 1164 1335; Mul 1335 369 1164; Add 1109 1109 1335;
  Mul 1335 400 1447; Mul 1691 396 1408; Mul 1488 35 1488; Add 1691 1691 1488; Mul 1677 19 1677;
  Mul 1488 398 1504; Sub 1677 1677 1488; Add 1691 1691 1677; Mul 1677 371 1691; Add 1335 1335 1677;
  Mul 1677 402 1180; Mul 1019 62 1019; Mul 1389 48 1389; Sub 1019 1019 1389; Sub 1362 1362 1019;
  Mul 1019 318 1362; Add 1677 1677 1019; Add 1335 1335 1677; Add 1109 1109 1335; Mul 1335 387 1662;
  Mul 1677 390 1351; Add 1335 1335 1677; Mul 1677 363 1507; Mul 1019 379 1083; Add 1677 1677 1019;
  Sub 1335 1335 1677; Add 1109 1109 1335; Mul 1335 213 1109; Mul 1335 378 1335; Mul 1677 384 1335;
  Add 1019 1139 1677; Mul 1389 397 1113; Mul 1488 358 1164; Add 1389 1389 1488; Mul 1488 400 1228;
  Mul 1119 364 1691; Add 1488 1488 1119; Mul 1119 402 1261; Mul 1305 310 1362; Add 1119 1119 1305;
  Add 1488 1488 1119; Add 1389 1389 1488; Mul 1488 405 1507; Mul 1119 362 1330; Mul 1305 369 1300;
  Add 1119 1119 1305; Mul 1305 365 1447; Mul 1608 371 1473; Add 1305 1305 1608; Mul 1608 367 1180;
  Mul 1287 318 1440; Add 1608 1608 1287; Add 1305 1305 1608; Add 1119 1119 1305; Mul 1305 379 1119;
  Add 1488 1488 1305; Mul 1305 387 1166; Mul 1608 383 1351; Add 1305 1305 1608; Sub 1488 1488 1305;
  Add 1389 1389 1488; Mul 1488 213 1389; Mul 1488 378 1488; Mul 1305 391 1488; Mul 1608 406 1244;
  Add 1287 1305 1608; Mul 1295 397 1364; Mul 1034 372 1164; Add 1295 1295 1034; Mul 1034 400 1308;
  Mul 1424 377 1691; Add 1034 1034 1424; Mul 1424 402 1193; Mul 1617 327 1362; Add 1424 1424 1617;
  Add 1034 1034 1424; Add 1295 1295 1034; Mul 1034 363 1166; Mul 1424 383 1083; Add 1034 1034 1424;
  Mul 1424 405 1662; Mul 1617 390 1119; Add 1424 1424 1617; Sub 1034 1034 1424; Add 1295 1295 1034;
  Mul 1034 213 1295; Mul 1034 378 1034; Mul 1424 381 1034; Mul 1617 409 1537; Add 1104 1424 1617;
  Add 1677 1677 1139; Add 1139 1104 1677; Add 1287 1287 1139; Sub 1478 1019 1287; Add 1608 1608 1305;
  Add 1617 1617 1424; Add 1019 1617 1019; Add 1608 1608 1019; Sub 1677 1677 1608].
Definition casadi_f0_783 : list instruction := [
  Add 1478 1478 1677; Add 1358 1358 1380; Add 1548 1548 1156; Sub 1156 1358 1548; Add 1478 1478 1156;
  Sub 1526 1526 1478; Mul 1478 413 1113; Sub 1156 1300 1485; Mul 1380 358 1156; Add 1478 1478 1380;
  Mul 1380 16 1228; Mul 1677 364 1136; Sub 1380 1380 1677; Mul 1677 15 1261; Mul 1424 310 1514;
  Add 1677 1677 1424; Sub 1380 1380 1677; Mul 1677 419 1380; Mul 1424 16 1473; Mul 1305 365 1136;
  Sub 1424 1424 1305; Mul 1305 367 1514; Mul 1332 15 1440; Add 1305 1305 1332; Sub 1424 1424 1305;
  Mul 1305 418 1424; Add 1677 1677 1305; Mul 1305 15 1228; Mul 1332 364 1514; Add 1305 1305 1332;
  Mul 1332 16 1261; Mul 1277 310 1136; Sub 1332 1332 1277; Add 1305 1305 1332; Mul 1332 422 1305;
  Mul 1277 365 1514; Mul 1143 15 1473; Add 1277 1277 1143; Mul 1143 16 1440; Mul 1500 367 1136;
  Sub 1143 1143 1500; Add 1277 1277 1143; Mul 1143 421 1277; Add 1332 1332 1143; Add 1677 1677 1332;
  Add 1478 1478 1677; Mul 1677 213 1478; Mul 1332 439 1677; Mul 1143 423 1330; Mul 1500 16 1447;
  Mul 1324 371 1136; Sub 1500 1500 1324; Mul 1324 15 1180; Mul 1297 318 1514; Add 1324 1324 1297;
  Sub 1500 1500 1324; Mul 1324 40 1500; Mul 1297 15 1447; Mul 1568 371 1514; Add 1297 1297 1568;
  Mul 1568 16 1180; Mul 1278 318 1136; Sub 1568 1568 1278; Add 1297 1297 1568; Mul 1568 42 1297;
  Add 1324 1324 1568; Add 1143 1143 1324; Mul 1324 372 1143; Mul 1568 424 1364; Add 1324 1324 1568;
  Mul 1568 40 1330; Mul 1278 14 1500; Mul 1466 18 1297; Add 1278 1278 1466; Add 1568 1568 1278;
  Mul 1278 429 1568; Mul 1466 16 1308; Mul 1641 377 1136; Sub 1466 1466 1641; Mul 1641 15 1193;
  Mul 1449 327 1514; Add 1641 1641 1449; Sub 1466 1466 1641; Mul 1641 428 1466; Add 1278 1278 1641;
  Add 1324 1324 1278; Mul 1278 43 1380; Mul 1641 431 1113; Sub 1278 1278 1641; Add 1324 1324 1278;
  Mul 1278 198 1364; Mul 1641 25 1308; Mul 1449 32 1193; Add 1641 1641 1449; Add 1278 1278 1641;
  Add 1278 1507 1278; Mul 1641 433 1364; Mul 1449 26 1466; Mul 1694 15 1308; Mul 1656 377 1514;
  Add 1694 1694 1656; Mul 1656 16 1193; Mul 1442 327 1136; Sub 1656 1656 1442; Add 1694 1694 1656;
  Mul 1656 28 1694; Add 1449 1449 1656; Add 1641 1641 1449; Add 1641 1278 1641; Mul 1449 430 1641;
  Mul 1449 438 1449; Mul 1656 198 1330; Mul 1442 25 1447; Mul 1646 32 1180; Add 1442 1442 1646;
  Add 1656 1656 1442; Add 1656 1166 1656; Mul 1442 433 1330; Mul 1646 26 1500; Mul 1483 28 1297;
  Add 1646 1646 1483; Add 1442 1442 1646; Add 1442 1656 1442; Mul 1646 435 1442; Add 1449 1449 1646;
  Sub 1449 1324 1449; Mul 1646 420 1449; Add 1483 1332 1646; Mul 1348 413 1364; Mul 1673 372 1156;
  Add 1348 1348 1673; Mul 1673 419 1466; Mul 1457 429 1424; Add 1673 1673 1457; Mul 1457 422 1694;
  Mul 1037 436 1277; Add 1457 1457 1037; Add 1673 1673 1457; Add 1348 1348 1673; Mul 1673 213 1348;
  Mul 1457 447 1673; Mul 1037 358 1143; Mul 1555 424 1113; Add 1037 1037 1555; Mul 1555 418 1568;
  Mul 1248 428 1380; Add 1555 1555 1248; Add 1037 1037 1555; Mul 1555 43 1466].
Definition casadi_f0_784 : list instruction := [
  Mul 1248 431 1364; Sub 1555 1555 1248; Sub 1037 1037 1555; Mul 1555 198 1113; Mul 1248 25 1228;
  Mul 1151 32 1261; Add 1248 1248 1151; Add 1555 1555 1248; Add 1555 1662 1555; Mul 1248 433 1113;
  Mul 1151 26 1380; Mul 1558 28 1305; Add 1151 1151 1558; Add 1248 1248 1151; Add 1248 1555 1248;
  Mul 1151 430 1248; Mul 1558 438 1151; Mul 1633 446 1442; Add 1558 1558 1633; Sub 1558 1037 1558;
  Mul 1633 442 1558; Add 1165 1457 1633; Sub 1343 1483 1165; Mul 1413 455 1442; Mul 1215 450 1330;
  Mul 1574 25 1440; Mul 1576 32 1473; Sub 1574 1574 1576; Sub 1164 1164 1574; Mul 1574 369 1164;
  Add 1215 1215 1574; Mul 1574 453 1500; Mul 1576 32 1300; Mul 1440 198 1440; Sub 1576 1576 1440;
  Sub 1691 1691 1576; Mul 1576 16 1691; Mul 1440 452 1136; Sub 1576 1576 1440; Mul 1440 454 1514;
  Mul 1473 198 1473; Mul 1300 25 1300; Sub 1473 1473 1300; Sub 1362 1362 1473; Mul 1473 15 1362;
  Add 1440 1440 1473; Sub 1576 1576 1440; Mul 1440 425 1576; Add 1574 1574 1440; Mul 1440 456 1297;
  Mul 1473 452 1514; Mul 1691 15 1691; Add 1473 1473 1691; Mul 1362 16 1362; Mul 1691 454 1136;
  Sub 1362 1362 1691; Add 1473 1473 1362; Mul 1362 427 1473; Add 1440 1440 1362; Add 1574 1574 1440;
  Add 1215 1215 1574; Mul 1574 441 1555; Mul 1440 444 1348; Add 1574 1574 1440; Mul 1440 417 1278;
  Mul 1362 432 1478; Add 1440 1440 1362; Sub 1574 1574 1440; Add 1215 1215 1574; Mul 1574 213 1215;
  Mul 1574 430 1574; Mul 1440 438 1574; Add 1362 1413 1440; Mul 1691 450 1113; Mul 1300 358 1164;
  Add 1691 1691 1300; Mul 1300 453 1380; Mul 1541 418 1576; Add 1300 1300 1541; Mul 1305 456 1305;
  Mul 1541 421 1473; Add 1305 1305 1541; Add 1300 1300 1305; Add 1691 1691 1300; Mul 1300 459 1278;
  Mul 1305 413 1330; Mul 1156 369 1156; Add 1305 1305 1156; Mul 1156 419 1500; Mul 1424 425 1424;
  Add 1156 1156 1424; Mul 1297 422 1297; Mul 1277 427 1277; Add 1297 1297 1277; Add 1156 1156 1297;
  Add 1305 1305 1156; Mul 1156 432 1305; Add 1300 1300 1156; Mul 1156 441 1656; Mul 1297 437 1348;
  Add 1156 1156 1297; Sub 1300 1300 1156; Add 1691 1691 1300; Mul 1300 213 1691; Mul 1300 430 1300;
  Mul 1156 445 1300; Mul 1297 460 1248; Add 1277 1156 1297; Mul 1424 450 1364; Mul 1164 372 1164;
  Add 1424 1424 1164; Mul 1164 453 1466; Mul 1576 429 1576; Add 1164 1164 1576; Mul 1576 456 1694;
  Mul 1473 436 1473; Add 1576 1576 1473; Add 1164 1164 1576; Add 1424 1424 1164; Mul 1164 417 1656;
  Mul 1576 437 1478; Add 1164 1164 1576; Mul 1576 459 1555; Mul 1473 444 1305; Add 1576 1576 1473;
  Sub 1164 1164 1576; Add 1424 1424 1164; Mul 1164 213 1424; Mul 1164 430 1164; Mul 1576 434 1164;
  Mul 1473 463 1641; Add 1541 1576 1473; Add 1440 1440 1413; Add 1413 1541 1440; Add 1277 1277 1413;
  Sub 1432 1362 1277; Add 1297 1297 1156; Add 1473 1473 1576; Add 1362 1473 1362; Add 1297 1297 1362;
  Sub 1440 1440 1297; Add 1432 1432 1440; Add 1633 1633 1457; Add 1646 1646 1332; Sub 1332 1633 1646;
  Add 1432 1432 1332; Sub 1343 1343 1432; Add 1526 1526 1343; Add 1400 1400 1526].
Definition casadi_f0_785 : list instruction := [
  Add 1631 1631 1400; Add 1701 1701 1631; Mul 1701 0 1701; Mul 1631 235 1288; Add 1701 1701 1631;
  Mul 1475 261 1475; Mul 1631 262 1272; Add 1475 1475 1631; Mul 1640 315 1640; Mul 1631 316 1611;
  Add 1640 1640 1631; Mul 1345 369 1345; Mul 1631 370 1330; Add 1345 1345 1631; Mul 1271 371 1271;
  Mul 1631 375 1447; Add 1271 1271 1631; Add 1345 1345 1271; Mul 1143 369 1143; Mul 1271 424 1330;
  Add 1143 1143 1271; Mul 1568 425 1568; Mul 1271 428 1500; Add 1568 1568 1271; Add 1143 1143 1568;
  Add 1568 1345 1143; Sub 1271 1244 1248; Mul 1631 480 1271; Sub 1400 1537 1641; Mul 1432 1197 1400;
  Add 1332 1631 1432; Mul 1332 20 1332; Add 1568 1568 1332; Add 1332 1640 1568; Mul 1457 485 1244;
  Mul 1440 50 1248; Add 1457 1457 1440; Sub 1440 1062 1457; Mul 1576 487 1440; Mul 1156 485 1537;
  Mul 1647 50 1641; Add 1156 1156 1647; Sub 1647 1692 1156; Mul 1419 1286 1647; Add 1134 1576 1419;
  Mul 1134 37 1134; Add 1332 1332 1134; Add 1134 1475 1332; Mul 1187 493 1062; Mul 1022 83 1457;
  Add 1187 1187 1022; Sub 1022 1491 1187; Mul 1648 495 1022; Mul 1194 493 1692; Mul 1325 83 1156;
  Add 1194 1194 1325; Sub 1325 1367 1194; Mul 1157 1294 1325; Add 1455 1648 1157; Mul 1455 80 1455;
  Add 1134 1134 1455; Mul 1455 237 1508; Mul 1142 113 1142; Sub 1455 1455 1142; Sub 1142 1134 1455;
  Mul 1391 501 1367; Mul 1189 104 1194; Add 1391 1391 1189; Sub 1189 1159 1391; Mul 1099 1299 1189;
  Mul 1229 501 1491; Mul 1289 104 1187; Add 1229 1229 1289; Add 1289 1042 1229; Mul 1426 503 1289;
  Sub 1573 1099 1426; Mul 1573 100 1573; Add 1142 1142 1573; Mul 1142 508 1142; Mul 1573 216 1605;
  Mul 1173 219 1276; Sub 1573 1573 1173; Mul 1173 215 1552; Mul 1355 227 1359; Add 1173 1173 1355;
  Add 1573 1573 1173; Mul 1173 500 1573; Add 1142 1142 1173; Add 1173 1591 1037; Mul 1271 20 1271;
  Mul 1355 512 1271; Sub 1346 1176 1442; Mul 1557 511 1346; Add 1355 1355 1557; Sub 1173 1173 1355;
  Add 1355 1664 1173; Mul 1440 37 1440; Mul 1557 516 1440; Mul 1444 485 1176; Mul 1484 50 1442;
  Add 1444 1444 1484; Sub 1484 1625 1444; Mul 1688 514 1484; Add 1557 1557 1688; Sub 1355 1355 1557;
  Add 1557 1121 1355; Mul 1022 80 1022; Mul 1688 520 1022; Mul 1657 493 1625; Mul 1350 83 1444;
  Add 1657 1657 1350; Sub 1350 1565 1657; Mul 1363 518 1350; Add 1688 1688 1363; Sub 1557 1557 1688;
  Add 1688 1509 1557; Mul 1289 100 1289; Mul 1363 524 1289; Mul 1369 501 1565; Mul 1074 104 1657;
  Add 1369 1369 1074; Add 1074 1654 1369; Mul 1522 522 1074; Add 1363 1363 1522; Add 1688 1688 1363;
  Mul 1363 526 1688; Mul 1522 221 1508; Mul 1049 113 1049; Add 1522 1522 1049; Mul 1533 114 1533;
  Mul 1049 218 1259; Sub 1533 1533 1049; Add 1522 1522 1533; Mul 1533 216 1522; Mul 1049 525 1276;
  Sub 1533 1533 1049; Mul 1049 521 1533; Add 1363 1363 1049; Add 1049 1409 1324; Mul 1431 20 1400;
  Mul 1431 512 1431; Mul 1030 529 1346; Add 1431 1431 1030; Sub 1049 1049 1431; Add 1431 1123 1049;
  Mul 1030 37 1647; Mul 1030 516 1030; Mul 1486 531 1484; Add 1030 1030 1486].
Definition casadi_f0_786 : list instruction := [
  Sub 1431 1431 1030; Add 1030 1499 1431; Mul 1486 80 1325; Mul 1486 520 1486; Mul 1698 533 1350;
  Add 1486 1486 1698; Sub 1030 1030 1486; Add 1486 1110 1030; Mul 1698 100 1189; Mul 1698 524 1698;
  Mul 1211 535 1074; Sub 1698 1698 1211; Sub 1486 1486 1698; Mul 1698 536 1486; Mul 1211 215 1522;
  Mul 1655 525 1359; Add 1211 1211 1655; Mul 1655 534 1211; Add 1698 1698 1655; Add 1363 1363 1698;
  Sub 1142 1142 1363; Mul 1363 120 1229; Mul 1698 527 1042; Sub 1363 1363 1698; Mul 1698 539 1363;
  Mul 1655 120 1369; Mul 1347 527 1654; Sub 1655 1655 1347; Mul 1347 526 1655; Mul 1296 538 1533;
  Add 1347 1347 1296; Mul 1296 508 1363; Mul 1246 537 1573; Add 1296 1296 1246; Add 1347 1347 1296;
  Mul 1296 540 1522; Mul 1246 214 1276; Mul 1256 525 1246; Sub 1296 1296 1256; Sub 1347 1347 1296;
  Mul 1347 141 1347; Mul 1256 537 1347; Add 1698 1698 1256; Mul 1256 527 1159; Mul 1524 120 1391;
  Add 1256 1256 1524; Mul 1524 546 1256; Mul 1162 544 1522; Mul 1556 214 1359; Mul 1060 525 1556;
  Add 1162 1162 1060; Mul 1060 508 1256; Mul 1563 543 1573; Add 1060 1060 1563; Mul 1563 536 1655;
  Mul 1680 538 1211; Add 1563 1563 1680; Add 1060 1060 1563; Sub 1060 1162 1060; Mul 1060 141 1060;
  Mul 1563 543 1060; Add 1524 1524 1563; Sub 1698 1698 1524; Add 1142 1142 1698; Mul 1698 553 1365;
  Mul 1524 238 1021; Mul 1089 236 1089; Mul 1563 144 1276; Sub 1089 1089 1563; Add 1524 1524 1089;
  Mul 1089 224 1524; Mul 1563 542 1021; Add 1089 1089 1563; Mul 1021 144 1021; Mul 1563 549 1276;
  Sub 1021 1021 1563; Mul 1563 216 1021; Mul 1680 548 1276; Sub 1563 1563 1680; Add 1089 1089 1563;
  Mul 1563 1334 1042; Mul 1680 1336 1654; Add 1210 1563 1680; Mul 1210 212 1210; Sub 1210 1089 1210;
  Mul 1371 249 1210; Add 1704 1698 1371; Mul 1705 556 1459; Mul 1524 220 1524; Mul 1230 542 1230;
  Sub 1524 1524 1230; Mul 1021 215 1021; Mul 1230 548 1359; Add 1021 1021 1230; Sub 1524 1524 1021;
  Mul 1021 241 1159; Mul 1421 225 1421; Sub 1021 1021 1421; Sub 1021 1524 1021; Mul 1421 244 1021;
  Add 1230 1705 1421; Sub 1704 1704 1230; Mul 1230 242 1279; Mul 1636 223 1654; Sub 1230 1230 1636;
  Mul 1636 1342 1159; Sub 1563 1636 1563; Mul 1563 212 1563; Sub 1563 1563 1455; Mul 1518 249 1563;
  Mul 1521 551 1365; Add 1284 1518 1521; Mul 1697 560 1319; Mul 1096 213 1522; Mul 1150 243 1096;
  Add 1539 1697 1150; Sub 1284 1284 1539; Add 1284 1230 1284; Sub 1704 1704 1284; Sub 1284 1455 1089;
  Mul 1539 219 1284; Mul 1547 557 1605; Add 1539 1539 1547; Mul 1547 227 1524; Mul 1086 555 1552;
  Add 1547 1547 1086; Add 1539 1539 1547; Mul 1547 525 1509; Mul 1086 239 1522; Add 1547 1547 1086;
  Add 1539 1539 1547; Mul 1547 340 1159; Mul 1086 231 1552; Mul 1247 227 1042; Sub 1086 1086 1247;
  Mul 1247 219 1159; Mul 1411 225 1605; Add 1247 1247 1411; Sub 1086 1086 1247; Mul 1086 212 1086;
  Mul 1247 225 1086; Add 1547 1547 1247; Mul 1247 242 1605; Mul 1411 219 1654; Sub 1247 1247 1411;
  Mul 1411 231 1522; Mul 1232 525 1042; Sub 1411 1411 1232; Sub 1247 1247 1411].
Definition casadi_f0_787 : list instruction := [
  Sub 1247 1133 1247; Mul 1247 212 1247; Mul 1411 242 1247; Mul 1232 559 1654; Sub 1411 1411 1232;
  Add 1547 1547 1411; Sub 1539 1539 1547; Mul 1539 213 1539; Sub 1704 1704 1539; Mul 1547 567 1081;
  Mul 1411 260 1674; Mul 1232 263 1423; Mul 1137 127 1276; Sub 1232 1232 1137; Add 1411 1411 1232;
  Mul 1232 265 1411; Mul 1137 547 1674; Add 1232 1232 1137; Mul 1674 127 1674; Mul 1423 268 1423;
  Mul 1137 563 1276; Sub 1423 1423 1137; Add 1674 1674 1423; Mul 1423 216 1674; Mul 1137 562 1276;
  Sub 1423 1423 1137; Add 1232 1232 1423; Mul 1423 1138 1491; Mul 1137 1357 1565; Add 1675 1423 1137;
  Mul 1675 269 1675; Add 1675 1232 1675; Mul 1579 258 1675; Add 1570 1547 1579; Mul 1618 570 1200;
  Mul 1411 253 1411; Mul 1564 547 1564; Add 1411 1411 1564; Mul 1674 215 1674; Mul 1564 562 1359;
  Add 1674 1674 1564; Sub 1411 1411 1674; Mul 1272 135 1272; Sub 1411 1411 1272; Mul 1487 271 1487;
  Mul 1272 283 1367; Add 1487 1487 1272; Sub 1487 1411 1487; Mul 1272 279 1487; Add 1674 1618 1272;
  Sub 1570 1570 1674; Mul 1674 300 1565; Mul 1564 275 1671; Add 1320 1674 1564; Mul 1601 271 1417;
  Mul 1108 292 1367; Add 1055 1601 1108; Add 1320 1320 1055; Mul 1055 1366 1367; Add 1423 1423 1055;
  Mul 1423 269 1423; Add 1423 1475 1423; Mul 1053 258 1423; Mul 1105 565 1081; Add 1628 1053 1105;
  Mul 1661 574 1703; Mul 1198 213 1093; Mul 1213 284 1198; Add 1392 1661 1213; Sub 1628 1628 1392;
  Add 1320 1320 1628; Sub 1570 1570 1320; Mul 1320 571 1549; Add 1628 1232 1475; Mul 1392 255 1628;
  Sub 1320 1320 1392; Mul 1392 278 1411; Mul 1275 569 1102; Add 1392 1392 1275; Add 1320 1320 1392;
  Mul 1392 296 1121; Mul 1275 280 1093; Add 1392 1392 1275; Add 1320 1320 1392; Mul 1392 471 1367;
  Mul 1275 278 1491; Mul 1378 282 1102; Add 1275 1275 1378; Mul 1378 255 1367; Mul 1562 271 1549;
  Add 1378 1378 1562; Sub 1275 1275 1378; Sub 1275 1602 1275; Mul 1275 269 1275; Mul 1378 271 1275;
  Add 1392 1392 1378; Mul 1378 573 1565; Mul 1562 255 1565; Mul 1420 275 1549; Add 1562 1562 1420;
  Mul 1420 296 1491; Mul 1474 282 1093; Add 1420 1420 1474; Sub 1562 1562 1420; Sub 1562 1388 1562;
  Mul 1562 269 1562; Mul 1420 275 1562; Add 1378 1378 1420; Sub 1392 1392 1378; Add 1320 1320 1392;
  Mul 1320 213 1320; Sub 1570 1570 1320; Mul 1392 581 1589; Mul 1378 314 1422; Mul 1420 317 1193;
  Mul 1474 128 1276; Sub 1420 1420 1474; Add 1378 1378 1420; Mul 1420 319 1378; Mul 1474 561 1422;
  Add 1420 1420 1474; Mul 1422 128 1422; Mul 1474 322 1193; Mul 1071 577 1276; Sub 1474 1474 1071;
  Add 1422 1422 1474; Mul 1474 216 1422; Mul 1071 576 1276; Sub 1474 1474 1071; Add 1420 1420 1474;
  Mul 1474 1379 1062; Mul 1071 1381 1625; Add 1536 1474 1071; Mul 1536 323 1536; Add 1536 1420 1536;
  Mul 1496 312 1536; Add 1599 1392 1496; Mul 1149 584 1642; Mul 1378 304 1378; Mul 1398 561 1398;
  Add 1378 1378 1398; Mul 1422 215 1422; Mul 1398 576 1359; Add 1422 1422 1398; Sub 1378 1378 1422;
  Mul 1611 131 1611; Sub 1378 1378 1611; Mul 1681 325 1681; Mul 1611 337 1692].
Definition casadi_f0_788 : list instruction := [
  Add 1681 1681 1611; Sub 1681 1378 1681; Mul 1611 333 1681; Add 1422 1149 1611; Sub 1599 1599 1422;
  Mul 1422 354 1625; Mul 1398 329 1167; Add 1236 1422 1398; Mul 1267 325 1638; Mul 1550 346 1692;
  Add 1172 1267 1550; Add 1236 1236 1172; Mul 1172 1390 1692; Add 1474 1474 1172; Mul 1474 323 1474;
  Add 1474 1640 1474; Mul 1224 312 1474; Mul 1339 579 1589; Add 1438 1224 1339; Mul 1621 588 1443;
  Mul 1467 213 1131; Mul 1577 338 1467; Add 1666 1621 1577; Sub 1438 1438 1666; Add 1236 1236 1438;
  Sub 1599 1599 1236; Mul 1236 585 1451; Add 1438 1420 1640; Mul 1666 309 1438; Sub 1236 1236 1666;
  Mul 1666 332 1378; Mul 1207 583 1315; Add 1666 1666 1207; Add 1236 1236 1666; Mul 1666 349 1664;
  Mul 1207 334 1131; Add 1666 1666 1207; Add 1236 1236 1666; Mul 1666 473 1692; Mul 1207 332 1062;
  Mul 1254 336 1315; Add 1207 1207 1254; Mul 1254 309 1692; Mul 1606 325 1451; Add 1254 1254 1606;
  Sub 1207 1207 1254; Sub 1207 1510 1207; Mul 1207 323 1207; Mul 1254 325 1207; Add 1666 1666 1254;
  Mul 1254 587 1625; Mul 1606 309 1625; Mul 1603 329 1451; Add 1606 1606 1603; Mul 1603 349 1062;
  Mul 1477 336 1131; Add 1603 1603 1477; Sub 1606 1606 1603; Sub 1606 1493 1606; Mul 1606 323 1606;
  Mul 1603 329 1606; Add 1254 1254 1603; Sub 1666 1666 1254; Add 1236 1236 1666; Mul 1236 213 1236;
  Sub 1599 1599 1236; Mul 1666 594 1396; Mul 1254 368 1364; Mul 1603 39 1308; Mul 1477 373 1193;
  Add 1603 1603 1477; Add 1254 1254 1603; Mul 1603 372 1254; Mul 1477 575 1364; Add 1603 1603 1477;
  Mul 1477 39 1364; Mul 1505 376 1308; Add 1477 1477 1505; Mul 1505 377 1477; Mul 1308 590 1308;
  Add 1505 1505 1308; Add 1603 1603 1505; Mul 1505 1404 1244; Mul 1308 1405 1176; Add 1546 1505 1308;
  Mul 1546 378 1546; Add 1546 1603 1546; Mul 1101 366 1546; Add 1192 1666 1101; Mul 1435 597 1412;
  Mul 1254 358 1254; Mul 1634 575 1113; Add 1254 1254 1634; Mul 1477 364 1477; Mul 1228 590 1228;
  Add 1477 1477 1228; Add 1254 1254 1477; Mul 1447 69 1447; Add 1254 1254 1447; Mul 1627 381 1627;
  Mul 1447 392 1537; Add 1627 1627 1447; Sub 1627 1254 1627; Mul 1447 388 1627; Add 1477 1435 1447;
  Sub 1192 1192 1477; Mul 1477 409 1176; Mul 1228 384 1034; Add 1634 1477 1228; Mul 1097 381 1335;
  Mul 1124 401 1537; Add 1571 1097 1124; Add 1634 1634 1571; Mul 1571 1414 1537; Add 1505 1505 1571;
  Mul 1505 378 1505; Add 1505 1345 1505; Mul 1204 366 1505; Mul 1512 592 1396; Add 1227 1204 1512;
  Mul 1682 601 1140; Mul 1458 213 1119; Mul 1479 393 1458; Add 1566 1682 1479; Sub 1227 1227 1566;
  Add 1634 1634 1227; Sub 1192 1192 1634; Mul 1634 598 1083; Add 1227 1603 1345; Mul 1566 363 1227;
  Sub 1634 1634 1566; Mul 1566 387 1254; Mul 1225 596 1351; Add 1566 1566 1225; Add 1634 1634 1566;
  Mul 1566 405 1591; Mul 1225 389 1119; Add 1566 1566 1225; Add 1634 1634 1566; Mul 1566 475 1537;
  Mul 1225 387 1244; Mul 1337 391 1351; Add 1225 1225 1337; Mul 1337 363 1537; Mul 1190 381 1083;
  Add 1337 1337 1190; Sub 1225 1225 1337; Sub 1225 1109 1225; Mul 1225 378 1225].
Definition casadi_f0_789 : list instruction := [
  Mul 1337 381 1225; Add 1566 1566 1337; Mul 1337 600 1176; Mul 1190 363 1176; Mul 1016 384 1083;
  Add 1190 1190 1016; Mul 1016 405 1244; Mul 1511 391 1119; Add 1016 1016 1511; Sub 1190 1190 1016;
  Sub 1190 1295 1190; Mul 1190 378 1190; Mul 1016 384 1190; Add 1337 1337 1016; Sub 1566 1566 1337;
  Add 1634 1634 1566; Mul 1634 213 1634; Sub 1192 1192 1634; Mul 1566 607 1677; Mul 1337 423 1364;
  Mul 1016 40 1466; Mul 1511 42 1694; Add 1016 1016 1511; Add 1337 1337 1016; Mul 1016 372 1337;
  Mul 1511 589 1364; Add 1016 1016 1511; Mul 1511 40 1364; Mul 1132 14 1466; Mul 1694 18 1694;
  Add 1132 1132 1694; Add 1511 1511 1132; Mul 1132 429 1511; Mul 1466 603 1466; Add 1132 1132 1466;
  Add 1016 1016 1132; Mul 1132 1428 1248; Mul 1466 1264 1442; Add 1694 1132 1466; Mul 1694 430 1694;
  Add 1694 1016 1694; Mul 1051 420 1694; Add 1169 1566 1051; Mul 1310 610 1673; Mul 1337 358 1337;
  Mul 1098 589 1113; Add 1337 1337 1098; Mul 1511 418 1511; Mul 1380 603 1380; Add 1511 1511 1380;
  Add 1337 1337 1511; Mul 1500 43 1500; Mul 1511 431 1330; Sub 1500 1500 1511; Add 1337 1337 1500;
  Mul 1151 434 1151; Mul 1500 446 1641; Add 1151 1151 1500; Sub 1151 1337 1151; Mul 1500 442 1151;
  Add 1511 1310 1500; Sub 1169 1169 1511; Mul 1511 463 1442; Mul 1380 438 1164; Add 1098 1511 1380;
  Mul 1687 434 1574; Mul 1103 455 1641; Add 1595 1687 1103; Add 1098 1098 1595; Mul 1595 1437 1641;
  Add 1132 1132 1595; Mul 1132 430 1132; Add 1132 1143 1132; Mul 1645 420 1132; Mul 1554 605 1677;
  Add 1572 1645 1554; Mul 1545 614 1558; Mul 1257 213 1305; Mul 1354 447 1257; Add 1653 1545 1354;
  Sub 1572 1572 1653; Add 1098 1098 1572; Sub 1169 1169 1098; Mul 1098 13 1478; Add 1572 1016 1143;
  Mul 1653 417 1572; Sub 1098 1098 1653; Mul 1653 441 1337; Mul 1251 609 1348; Add 1653 1653 1251;
  Add 1098 1098 1653; Mul 1653 459 1037; Mul 1251 443 1305; Add 1653 1653 1251; Add 1098 1098 1653;
  Mul 1653 477 1641; Mul 1251 441 1248; Mul 1090 445 1348; Add 1251 1251 1090; Mul 1090 417 1641;
  Mul 1181 434 1478; Add 1090 1090 1181; Sub 1251 1251 1090; Sub 1251 1215 1251; Mul 1251 430 1251;
  Mul 1090 434 1251; Add 1653 1653 1090; Mul 1090 611 1442; Mul 1181 417 1442; Mul 1465 438 1478;
  Add 1181 1181 1465; Mul 1465 459 1248; Mul 1523 445 1305; Add 1465 1465 1523; Sub 1181 1181 1465;
  Sub 1181 1424 1181; Mul 1181 430 1181; Mul 1465 438 1181; Add 1090 1090 1465; Sub 1653 1653 1090;
  Add 1098 1098 1653; Mul 1098 213 1098; Sub 1169 1169 1098; Add 1192 1192 1169; Add 1599 1599 1192;
  Add 1570 1570 1599; Add 1704 1704 1570; Mul 1704 216 1704; Mul 1653 554 1276; Sub 1704 1704 1653;
  Mul 1653 242 1651; Mul 1090 230 1654; Sub 1653 1653 1090; Mul 1090 560 1209; Mul 1465 248 1096;
  Add 1523 1090 1465; Mul 1563 244 1563; Mul 1263 551 1459; Add 1597 1563 1263; Sub 1523 1523 1597;
  Sub 1523 1653 1523; Mul 1597 556 1365; Mul 1575 249 1021; Add 1147 1597 1575; Mul 1231 558 1459;
  Sub 1636 1636 1680; Mul 1636 212 1636; Add 1636 1284 1636; Mul 1680 244 1636].
Definition casadi_f0_790 : list instruction := [
  Add 1191 1231 1680; Sub 1147 1147 1191; Add 1523 1523 1147; Mul 1147 219 1524; Mul 1191 555 1605;
  Add 1147 1147 1191; Mul 1191 227 1089; Mul 1503 550 1552; Add 1191 1191 1503; Add 1147 1147 1191;
  Mul 1191 525 1110; Mul 1503 246 1522; Add 1191 1191 1503; Add 1147 1147 1191; Mul 1191 231 1086;
  Mul 1503 340 1042; Sub 1191 1191 1503; Mul 1503 525 1159; Mul 1338 225 1522; Add 1503 1503 1338;
  Mul 1338 242 1552; Mul 1690 227 1654; Sub 1338 1338 1690; Sub 1503 1503 1338; Add 1503 1234 1503;
  Mul 1503 212 1503; Mul 1338 242 1503; Mul 1690 616 1654; Sub 1338 1338 1690; Sub 1191 1191 1338;
  Add 1147 1147 1191; Mul 1147 213 1147; Add 1523 1523 1147; Mul 1191 570 1081; Mul 1338 258 1487;
  Add 1690 1191 1338; Mul 1318 572 1200; Add 1055 1055 1137; Mul 1055 269 1055; Sub 1055 1055 1628;
  Mul 1137 279 1055; Add 1177 1318 1137; Sub 1690 1690 1177; Mul 1177 297 1565; Mul 1520 275 1667;
  Add 1333 1177 1520; Mul 1168 282 1417; Mul 1660 292 1491; Add 1268 1168 1660; Add 1333 1333 1268;
  Mul 1268 574 1410; Mul 1048 276 1198; Add 1407 1268 1048; Mul 1423 279 1423; Mul 1088 565 1200;
  Add 1502 1423 1088; Sub 1407 1407 1502; Add 1333 1333 1407; Sub 1690 1690 1333; Mul 1333 255 1411;
  Mul 1407 569 1549; Add 1333 1333 1407; Mul 1407 278 1232; Mul 1502 564 1102; Add 1407 1407 1502;
  Add 1333 1333 1407; Mul 1407 296 1499; Mul 1502 266 1093; Add 1407 1407 1502; Add 1333 1333 1407;
  Mul 1407 617 1565; Mul 1502 296 1367; Mul 1658 271 1093; Add 1502 1502 1658; Mul 1658 278 1565;
  Mul 1368 275 1102; Add 1658 1658 1368; Sub 1502 1502 1658; Sub 1502 1313 1502; Mul 1502 269 1502;
  Mul 1658 275 1502; Add 1407 1407 1658; Mul 1658 471 1491; Mul 1368 282 1275; Add 1658 1658 1368;
  Sub 1407 1407 1658; Add 1333 1333 1407; Mul 1333 213 1333; Add 1690 1690 1333; Mul 1407 584 1589;
  Mul 1658 312 1681; Add 1368 1407 1658; Mul 1170 586 1642; Add 1172 1172 1071; Mul 1172 323 1172;
  Sub 1172 1172 1438; Mul 1071 333 1172; Add 1112 1170 1071; Sub 1368 1368 1112; Mul 1112 351 1625;
  Mul 1460 329 1450; Add 1439 1112 1460; Mul 1024 336 1638; Mul 1583 346 1062; Add 1620 1024 1583;
  Add 1439 1439 1620; Mul 1620 588 1376; Mul 1542 330 1467; Add 1585 1620 1542; Mul 1474 333 1474;
  Mul 1017 579 1642; Add 1258 1474 1017; Sub 1585 1585 1258; Add 1439 1439 1585; Sub 1368 1368 1439;
  Mul 1439 309 1378; Mul 1585 583 1451; Add 1439 1439 1585; Mul 1585 332 1420; Mul 1258 578 1315;
  Add 1585 1585 1258; Add 1439 1439 1585; Mul 1585 349 1123; Mul 1258 320 1131; Add 1585 1585 1258;
  Add 1439 1439 1585; Mul 1585 619 1625; Mul 1258 349 1692; Mul 1515 325 1131; Add 1258 1258 1515;
  Mul 1515 332 1625; Mul 1311 329 1315; Add 1515 1515 1311; Sub 1258 1258 1515; Sub 1258 1689 1258;
  Mul 1258 323 1258; Mul 1515 329 1258; Add 1585 1585 1515; Mul 1515 473 1062; Mul 1311 336 1207;
  Add 1515 1515 1311; Sub 1585 1585 1515; Add 1439 1439 1585; Mul 1439 213 1439; Add 1368 1368 1439;
  Mul 1585 597 1396; Mul 1515 366 1627; Add 1311 1585 1515; Mul 1075 599 1412].
Definition casadi_f0_791 : list instruction := [
  Add 1571 1571 1308; Mul 1571 378 1571; Sub 1571 1571 1227; Mul 1308 388 1571; Add 1233 1075 1308;
  Sub 1311 1311 1233; Mul 1233 406 1176; Mul 1375 384 1488; Add 1639 1233 1375; Mul 1349 391 1335;
  Mul 1624 401 1244; Add 1245 1349 1624; Add 1639 1639 1245; Mul 1245 601 1679; Mul 1036 385 1458;
  Add 1416 1245 1036; Mul 1505 388 1505; Mul 1196 592 1412; Add 1195 1505 1196; Sub 1416 1416 1195;
  Add 1639 1639 1416; Sub 1311 1311 1639; Mul 1639 363 1254; Mul 1416 596 1083; Add 1639 1639 1416;
  Mul 1416 387 1603; Mul 1195 591 1351; Add 1416 1416 1195; Add 1639 1639 1416; Mul 1416 405 1409;
  Mul 1195 374 1119; Add 1416 1416 1195; Add 1639 1639 1416; Mul 1416 621 1176; Mul 1195 405 1537;
  Mul 1578 381 1119; Add 1195 1195 1578; Mul 1578 387 1176; Mul 1235 384 1351; Add 1578 1578 1235;
  Sub 1195 1195 1578; Sub 1195 1389 1195; Mul 1195 378 1195; Mul 1578 384 1195; Add 1416 1416 1578;
  Mul 1578 475 1244; Mul 1235 391 1225; Add 1578 1578 1235; Sub 1416 1416 1578; Add 1639 1639 1416;
  Mul 1639 213 1639; Add 1311 1311 1639; Mul 1416 610 1677; Mul 1578 420 1151; Add 1235 1416 1578;
  Mul 1241 612 1673; Add 1595 1595 1466; Mul 1595 430 1595; Sub 1595 1595 1572; Mul 1466 442 1595;
  Add 1470 1241 1466; Sub 1235 1235 1470; Mul 1470 460 1442; Mul 1528 438 1300; Add 1607 1470 1528;
  Mul 1434 445 1574; Mul 1154 455 1248; Add 1670 1434 1154; Add 1607 1607 1670; Mul 1670 614 1449;
  Mul 1174 439 1257; Add 1145 1670 1174; Mul 1132 442 1132; Mul 1436 605 1673; Add 1292 1132 1436;
  Sub 1145 1145 1292; Add 1607 1607 1145; Sub 1235 1235 1607; Mul 1607 417 1337; Mul 1145 609 1478;
  Add 1607 1607 1145; Mul 1145 441 1016; Mul 1292 604 1348; Add 1145 1145 1292; Add 1607 1607 1145;
  Mul 1145 459 1324; Mul 1292 426 1305; Add 1145 1145 1292; Add 1607 1607 1145; Mul 1145 623 1442;
  Mul 1292 459 1641; Mul 1463 434 1305; Add 1292 1292 1463; Mul 1463 441 1442; Mul 1239 438 1348;
  Add 1463 1463 1239; Sub 1292 1292 1463; Sub 1292 1691 1292; Mul 1292 430 1292; Mul 1463 438 1292;
  Add 1145 1145 1463; Mul 1463 477 1248; Mul 1239 445 1251; Add 1463 1463 1239; Sub 1145 1145 1463;
  Add 1607 1607 1145; Mul 1607 213 1607; Add 1235 1235 1607; Add 1311 1311 1235; Add 1368 1368 1311;
  Add 1690 1690 1368; Add 1523 1523 1690; Mul 1523 215 1523; Mul 1145 613 1359; Add 1523 1523 1145;
  Sub 1704 1704 1523; Mul 1523 212 1365; Mul 1145 242 1523; Mul 1463 624 1654; Sub 1145 1145 1463;
  Mul 1463 212 1096; Mul 1239 231 1463; Mul 1370 626 1042; Sub 1239 1239 1370; Add 1239 1279 1239;
  Sub 1145 1145 1239; Mul 1239 213 1247; Add 1370 1145 1239; Mul 1480 269 1081; Mul 1393 275 1480;
  Mul 1441 629 1565; Add 1613 1393 1441; Mul 1433 631 1491; Mul 1540 269 1198; Mul 1696 282 1540;
  Add 1632 1433 1696; Add 1632 1671 1632; Sub 1613 1613 1632; Mul 1632 213 1562; Add 1205 1613 1632;
  Mul 1683 323 1589; Mul 1643 329 1683; Mul 1590 634 1625; Add 1217 1643 1590; Mul 1186 636 1062;
  Mul 1672 323 1467; Mul 1584 336 1672; Add 1116 1186 1584; Add 1116 1167 1116].
Definition casadi_f0_792 : list instruction := [
  Sub 1217 1217 1116; Mul 1116 213 1606; Add 1114 1217 1116; Mul 1649 378 1396; Mul 1676 384 1649;
  Mul 1323 639 1176; Add 1032 1676 1323; Mul 1684 641 1244; Mul 1243 378 1458; Mul 1481 391 1243;
  Add 1179 1684 1481; Add 1179 1034 1179; Sub 1032 1032 1179; Mul 1179 213 1190; Add 1218 1032 1179;
  Mul 1559 430 1677; Mul 1535 438 1559; Mul 1453 644 1442; Add 1454 1535 1453; Mul 1693 646 1248;
  Mul 1594 430 1257; Mul 1401 445 1594; Add 1216 1693 1401; Add 1216 1164 1216; Sub 1454 1454 1216;
  Mul 1216 213 1181; Add 1188 1454 1216; Add 1218 1218 1188; Add 1114 1114 1218; Add 1205 1205 1114;
  Add 1370 1370 1205; Mul 1370 540 1370; Mul 1326 628 1246; Sub 1370 1370 1326; Mul 1326 212 1459;
  Mul 1610 242 1326; Mul 1084 650 1654; Sub 1610 1610 1084; Mul 1084 626 1159; Mul 1360 225 1463;
  Add 1084 1084 1360; Add 1084 1651 1084; Sub 1610 1610 1084; Mul 1084 213 1503; Add 1360 1610 1084;
  Mul 1265 631 1367; Mul 1415 271 1540; Add 1047 1265 1415; Sub 1047 1667 1047; Mul 1148 269 1200;
  Mul 1285 275 1148; Mul 1581 655 1565; Add 1199 1285 1581; Add 1047 1047 1199; Mul 1199 213 1502;
  Sub 1517 1047 1199; Mul 1580 636 1692; Mul 1448 325 1672; Add 1604 1580 1448; Sub 1604 1450 1604;
  Mul 1038 323 1642; Mul 1077 329 1038; Mul 1312 659 1625; Add 1586 1077 1312; Add 1604 1604 1586;
  Mul 1586 213 1258; Sub 1175 1604 1586; Mul 1513 641 1537; Mul 1593 381 1243; Add 1497 1513 1593;
  Sub 1497 1488 1497; Mul 1130 378 1412; Mul 1383 384 1130; Mul 1118 663 1176; Add 1122 1383 1118;
  Add 1497 1497 1122; Mul 1122 213 1195; Sub 1706 1497 1122; Mul 1587 646 1641; Mul 1495 434 1594;
  Add 1087 1587 1495; Sub 1087 1300 1087; Mul 1340 430 1673; Mul 1403 438 1340; Mul 1567 667 1442;
  Add 1394 1403 1567; Add 1087 1087 1394; Mul 1394 213 1292; Sub 1163 1087 1394; Add 1706 1706 1163;
  Add 1175 1175 1706; Add 1517 1517 1175; Add 1360 1360 1517; Mul 1360 544 1360; Mul 1668 653 1556;
  Add 1360 1360 1668; Add 1370 1370 1360; Sub 1704 1704 1370; Add 1142 1142 1704; Mul 1142 1 1142;
  Mul 1704 509 1532; Add 1142 1142 1704; Add 1701 1701 1142; Mul 1142 602 1557; Mul 1704 216 1093;
  Mul 1370 296 1276; Sub 1704 1704 1370; Mul 1370 517 1704; Add 1142 1142 1370; Mul 1370 670 1030;
  Mul 1360 215 1093; Mul 1668 296 1359; Add 1360 1360 1668; Mul 1668 532 1360; Add 1370 1370 1668;
  Add 1142 1142 1370; Mul 1134 671 1134; Mul 1370 216 1549; Mul 1668 255 1276; Sub 1370 1370 1668;
  Mul 1668 215 1102; Mul 1107 278 1359; Add 1668 1668 1107; Add 1370 1370 1668; Mul 1668 492 1370;
  Add 1134 1134 1668; Sub 1142 1142 1134; Mul 1134 675 1229; Mul 1668 215 1602; Mul 1107 290 1359;
  Add 1668 1668 1107; Mul 1107 674 1093; Mul 1598 216 1126; Mul 1253 274 1276; Add 1598 1598 1253;
  Mul 1253 296 1598; Sub 1107 1107 1253; Mul 1253 676 1549; Mul 1462 215 1462; Mul 1158 270 1359;
  Add 1462 1462 1158; Mul 1384 216 1384; Mul 1158 281 1276; Add 1384 1384 1158; Sub 1462 1462 1384;
  Mul 1384 255 1462; Add 1253 1253 1384; Add 1107 1107 1253; Add 1668 1668 1107].
Definition casadi_f0_793 : list instruction := [
  Mul 1107 602 1369; Mul 1253 523 1704; Add 1107 1107 1253; Mul 1253 671 1229; Mul 1384 502 1370;
  Add 1253 1253 1384; Add 1107 1107 1253; Sub 1107 1668 1107; Mul 1107 672 1107; Mul 1253 502 1107;
  Add 1134 1134 1253; Mul 1253 679 1391; Mul 1602 216 1602; Mul 1384 290 1276; Sub 1602 1602 1384;
  Mul 1384 676 1102; Mul 1158 278 1462; Add 1384 1384 1158; Mul 1158 680 1093; Mul 1663 274 1359;
  Mul 1126 215 1126; Sub 1663 1663 1126; Mul 1126 296 1663; Add 1158 1158 1126; Add 1384 1384 1158;
  Sub 1602 1602 1384; Mul 1384 671 1391; Mul 1158 505 1370; Add 1384 1384 1158; Mul 1158 670 1369;
  Mul 1126 523 1360; Add 1158 1158 1126; Add 1384 1384 1158; Add 1384 1602 1384; Mul 1384 672 1384;
  Mul 1158 505 1384; Add 1253 1253 1158; Sub 1134 1134 1253; Add 1142 1142 1134; Mul 1205 674 1205;
  Mul 1134 633 1598; Sub 1205 1205 1134; Mul 1517 680 1517; Mul 1134 657 1663; Add 1517 1517 1134;
  Mul 1540 275 1540; Mul 1565 631 1565; Add 1134 1540 1565; Mul 1253 629 1491; Mul 1158 282 1480;
  Add 1126 1253 1158; Mul 1226 655 1367; Mul 1644 271 1148; Add 1699 1226 1644; Add 1565 1565 1540;
  Add 1540 1699 1565; Add 1126 1126 1540; Sub 1461 1134 1126; Add 1158 1158 1253; Add 1644 1644 1226;
  Add 1134 1644 1134; Add 1158 1158 1134; Sub 1565 1565 1158; Sub 1461 1461 1565; Mul 1672 329 1672;
  Mul 1625 636 1625; Add 1565 1672 1625; Mul 1226 634 1062; Mul 1253 336 1683; Add 1659 1226 1253;
  Mul 1317 659 1692; Mul 1125 325 1038; Add 1527 1317 1125; Add 1625 1625 1672; Add 1672 1527 1625;
  Add 1659 1659 1672; Sub 1281 1565 1659; Add 1253 1253 1226; Add 1125 1125 1317; Add 1565 1125 1565;
  Add 1253 1253 1565; Sub 1625 1625 1253; Sub 1281 1281 1625; Mul 1243 384 1243; Mul 1176 641 1176;
  Add 1625 1243 1176; Mul 1317 639 1244; Mul 1226 391 1649; Add 1425 1317 1226; Mul 1240 663 1537;
  Mul 1141 381 1130; Add 1471 1240 1141; Add 1176 1176 1243; Add 1243 1471 1176; Add 1425 1425 1243;
  Sub 1146 1625 1425; Add 1226 1226 1317; Add 1141 1141 1240; Add 1625 1141 1625; Add 1226 1226 1625;
  Sub 1176 1176 1226; Sub 1146 1146 1176; Mul 1594 438 1594; Mul 1176 646 1442; Add 1240 1594 1176;
  Mul 1317 644 1248; Mul 1283 445 1559; Add 1255 1317 1283; Mul 1161 667 1641; Mul 1094 434 1340;
  Add 1622 1161 1094; Add 1176 1176 1594; Add 1594 1622 1176; Add 1255 1255 1594; Sub 1551 1240 1255;
  Add 1283 1283 1317; Add 1094 1094 1161; Add 1240 1094 1240; Add 1283 1283 1240; Sub 1176 1176 1283;
  Sub 1551 1551 1176; Add 1146 1146 1551; Add 1281 1281 1146; Add 1461 1461 1281; Mul 1461 676 1461;
  Mul 1176 687 1462; Add 1161 1461 1176; Sub 1517 1517 1161; Add 1205 1205 1517; Mul 1690 215 1690;
  Mul 1517 552 1359; Add 1690 1690 1517; Mul 1570 216 1570; Mul 1517 568 1276; Sub 1570 1570 1517;
  Sub 1690 1690 1570; Add 1205 1205 1690; Add 1142 1142 1205; Mul 1142 2 1142; Mul 1205 649 1020;
  Add 1142 1142 1205; Add 1701 1701 1142; Mul 1332 677 1332; Mul 1142 216 1451; Mul 1205 309 1276;
  Sub 1142 1142 1205; Mul 1205 215 1315; Mul 1690 332 1359; Add 1205 1205 1690].
Definition casadi_f0_794 : list instruction := [
  Add 1142 1142 1205; Mul 1205 484 1142; Add 1332 1332 1205; Mul 1205 706 1355; Mul 1690 216 1131;
  Mul 1570 349 1276; Sub 1690 1690 1570; Mul 1570 513 1690; Add 1205 1205 1570; Mul 1570 712 1431;
  Mul 1517 215 1131; Mul 1161 349 1359; Add 1517 1517 1161; Mul 1161 530 1517; Add 1570 1570 1161;
  Add 1205 1205 1570; Sub 1332 1332 1205; Mul 1205 711 1187; Mul 1570 706 1657; Mul 1161 519 1690;
  Add 1570 1570 1161; Mul 1161 677 1187; Mul 1317 494 1142; Add 1161 1161 1317; Add 1570 1570 1161;
  Mul 1161 215 1510; Mul 1317 344 1359; Add 1161 1161 1317; Mul 1317 714 1131; Mul 1316 216 1506;
  Mul 1529 328 1276; Sub 1316 1316 1529; Mul 1529 349 1316; Add 1317 1317 1529; Mul 1529 716 1451;
  Mul 1402 216 1402; Mul 1252 335 1276; Sub 1402 1402 1252; Mul 1091 215 1091; Mul 1252 324 1359;
  Add 1091 1091 1252; Add 1402 1402 1091; Mul 1091 309 1402; Add 1529 1529 1091; Add 1317 1317 1529;
  Add 1161 1161 1317; Sub 1570 1570 1161; Mul 1570 156 1570; Mul 1317 494 1570; Add 1205 1205 1317;
  Mul 1317 719 1194; Mul 1529 716 1315; Mul 1091 332 1402; Add 1529 1529 1091; Mul 1091 718 1131;
  Mul 1506 215 1506; Mul 1252 328 1359; Add 1506 1506 1252; Mul 1252 349 1506; Add 1091 1091 1252;
  Add 1529 1529 1091; Mul 1510 216 1510; Mul 1091 344 1276; Sub 1510 1510 1091; Sub 1529 1529 1510;
  Mul 1510 677 1194; Mul 1091 497 1142; Add 1510 1510 1091; Mul 1091 712 1657; Mul 1252 519 1517;
  Add 1091 1091 1252; Add 1510 1510 1091; Sub 1510 1529 1510; Mul 1510 156 1510; Mul 1091 497 1510;
  Add 1317 1317 1091; Sub 1205 1205 1317; Add 1332 1332 1205; Mul 1281 716 1281; Mul 1205 694 1402;
  Add 1317 1281 1205; Mul 1175 718 1175; Mul 1091 661 1506; Add 1175 1175 1091; Sub 1317 1317 1175;
  Mul 1114 714 1114; Mul 1175 638 1316; Add 1114 1114 1175; Sub 1317 1317 1114; Mul 1599 216 1599;
  Mul 1114 582 1276; Sub 1599 1599 1114; Mul 1368 215 1368; Mul 1114 618 1359; Add 1368 1368 1114;
  Sub 1599 1599 1368; Add 1317 1317 1599; Add 1332 1332 1317; Mul 1332 3 1332; Mul 1317 681 1092;
  Add 1332 1332 1317; Add 1701 1701 1332; Mul 1332 715 1173; Mul 1317 327 1119; Mul 1599 405 1193;
  Add 1317 1317 1599; Mul 1599 318 1351; Mul 1368 387 1180; Add 1599 1599 1368; Sub 1317 1317 1599;
  Mul 1599 510 1317; Add 1332 1332 1599; Mul 1599 721 1049; Mul 1368 318 1083; Mul 1114 363 1180;
  Add 1368 1368 1114; Mul 1114 310 1119; Mul 1175 405 1261; Add 1114 1114 1175; Sub 1368 1368 1114;
  Mul 1114 528 1368; Add 1599 1599 1114; Add 1332 1332 1599; Mul 1599 722 1568; Mul 1114 310 1351;
  Mul 1175 387 1261; Add 1114 1114 1175; Mul 1175 327 1083; Mul 1091 363 1193; Add 1175 1175 1091;
  Sub 1114 1114 1175; Mul 1175 479 1114; Add 1599 1599 1175; Add 1332 1332 1599; Mul 1599 726 1457;
  Mul 1175 318 1389; Mul 1091 404 1180; Add 1175 1175 1091; Mul 1091 310 1109; Mul 1252 399 1261;
  Add 1091 1091 1252; Sub 1175 1175 1091; Mul 1091 725 1119; Mul 1252 327 1166; Mul 1609 383 1193;
  Add 1252 1252 1609; Mul 1609 318 1507; Mul 1144 379 1180; Add 1609 1609 1144].
Definition casadi_f0_795 : list instruction := [
  Sub 1252 1252 1609; Mul 1609 405 1252; Add 1091 1091 1609; Mul 1609 727 1083; Mul 1507 310 1507;
  Mul 1144 379 1261; Add 1507 1507 1144; Mul 1144 327 1662; Mul 1270 390 1193; Add 1144 1144 1270;
  Sub 1507 1507 1144; Mul 1144 363 1507; Add 1609 1609 1144; Sub 1091 1091 1609; Add 1175 1175 1091;
  Mul 1091 715 1444; Mul 1609 515 1317; Add 1091 1091 1609; Mul 1609 722 1457; Mul 1144 486 1114;
  Add 1609 1609 1144; Sub 1091 1091 1609; Sub 1091 1175 1091; Mul 1091 723 1091; Mul 1609 486 1091;
  Add 1599 1599 1609; Mul 1609 730 1156; Mul 1109 327 1109; Mul 1144 399 1193; Add 1109 1109 1144;
  Mul 1144 318 1295; Mul 1270 408 1180; Add 1144 1144 1270; Sub 1109 1109 1144; Mul 1144 727 1351;
  Mul 1270 387 1507; Add 1144 1144 1270; Mul 1270 731 1119; Mul 1662 318 1662; Mul 1399 390 1180;
  Add 1662 1662 1399; Mul 1166 310 1166; Mul 1399 383 1261; Add 1166 1166 1399; Sub 1662 1662 1166;
  Mul 1166 405 1662; Add 1270 1270 1166; Sub 1144 1144 1270; Add 1109 1109 1144; Mul 1144 722 1156;
  Mul 1270 489 1114; Add 1144 1144 1270; Mul 1270 721 1444; Mul 1166 515 1368; Add 1270 1270 1166;
  Sub 1144 1144 1270; Sub 1144 1109 1144; Mul 1144 723 1144; Mul 1270 489 1144; Add 1609 1609 1270;
  Sub 1599 1599 1609; Add 1332 1332 1599; Mul 1599 725 1218; Mul 1609 643 1252; Add 1599 1599 1609;
  Mul 1609 731 1706; Mul 1270 665 1662; Add 1609 1609 1270; Mul 1270 727 1146; Mul 1166 701 1507;
  Add 1399 1270 1166; Add 1609 1609 1399; Add 1599 1599 1609; Mul 1609 310 1311; Mul 1399 620 1261;
  Add 1609 1609 1399; Mul 1399 327 1192; Mul 1700 595 1193; Add 1399 1399 1700; Mul 1526 318 1526;
  Mul 1700 395 1180; Add 1274 1526 1700; Add 1399 1399 1274; Add 1609 1609 1399; Sub 1599 1599 1609;
  Add 1332 1332 1599; Mul 1599 4 1332; Mul 1609 720 1135; Add 1599 1599 1609; Add 1701 1701 1599;
  Mul 1599 728 1037; Mul 1609 372 1305; Mul 1399 459 1364; Add 1609 1609 1399; Mul 1399 369 1348;
  Mul 1274 441 1330; Add 1399 1399 1274; Sub 1609 1609 1399; Mul 1399 443 1609; Add 1599 1599 1399;
  Mul 1399 733 1324; Mul 1274 369 1478; Mul 1468 417 1330; Add 1274 1274 1468; Mul 1468 358 1305;
  Mul 1652 459 1113; Add 1468 1468 1652; Sub 1274 1274 1468; Mul 1468 426 1274; Add 1399 1399 1468;
  Add 1599 1599 1399; Mul 1399 734 1143; Mul 1468 358 1348; Mul 1652 441 1113; Add 1468 1468 1652;
  Mul 1652 372 1478; Mul 1476 417 1364; Add 1652 1652 1476; Sub 1468 1468 1652; Mul 1652 478 1468;
  Add 1399 1399 1652; Add 1599 1599 1399; Mul 1399 735 1248; Mul 1652 369 1691; Mul 1476 458 1330;
  Add 1652 1652 1476; Mul 1476 358 1215; Mul 1106 451 1113; Add 1476 1476 1106; Sub 1652 1652 1476;
  Mul 1476 736 1305; Mul 1106 372 1656; Mul 1302 437 1364; Add 1106 1106 1302; Mul 1302 369 1278;
  Mul 1341 432 1330; Add 1302 1302 1341; Sub 1106 1106 1302; Mul 1302 459 1106; Add 1476 1476 1302;
  Mul 1302 738 1478; Mul 1278 358 1278; Mul 1341 432 1113; Add 1278 1278 1341; Mul 1341 372 1555;
  Mul 1082 444 1364; Add 1341 1341 1082; Sub 1278 1278 1341; Mul 1341 417 1278].
Definition casadi_f0_796 : list instruction := [
  Add 1302 1302 1341; Sub 1476 1476 1302; Add 1652 1652 1476; Mul 1476 728 1442; Mul 1302 438 1609;
  Add 1476 1476 1302; Mul 1302 734 1248; Mul 1341 445 1468; Add 1302 1302 1341; Sub 1476 1476 1302;
  Sub 1652 1652 1476; Mul 1652 430 1652; Mul 1476 445 1652; Add 1399 1399 1476; Mul 1476 739 1641;
  Mul 1215 372 1215; Mul 1302 451 1364; Add 1215 1215 1302; Mul 1302 369 1424; Mul 1341 462 1330;
  Add 1302 1302 1341; Sub 1215 1215 1302; Mul 1302 738 1348; Mul 1341 441 1278; Add 1302 1302 1341;
  Mul 1341 741 1305; Mul 1555 369 1555; Mul 1082 444 1330; Add 1555 1555 1082; Mul 1656 358 1656;
  Mul 1082 437 1113; Add 1656 1656 1082; Sub 1555 1555 1656; Mul 1656 459 1555; Add 1341 1341 1656;
  Sub 1302 1302 1341; Add 1215 1215 1302; Mul 1302 734 1641; Mul 1341 434 1468; Add 1302 1302 1341;
  Mul 1341 733 1442; Mul 1656 438 1274; Add 1341 1341 1656; Sub 1302 1302 1341; Sub 1215 1215 1302;
  Mul 1215 430 1215; Mul 1302 434 1215; Add 1476 1476 1302; Sub 1399 1399 1476; Add 1599 1599 1399;
  Mul 1399 736 1188; Mul 1476 648 1106; Add 1399 1399 1476; Mul 1476 741 1163; Mul 1302 669 1555;
  Add 1476 1476 1302; Mul 1302 738 1551; Mul 1341 708 1278; Add 1656 1302 1341; Add 1476 1476 1656;
  Add 1399 1399 1476; Mul 1476 358 1235; Mul 1656 622 1113; Add 1476 1476 1656; Mul 1656 372 1169;
  Mul 1082 608 1364; Add 1656 1656 1082; Mul 1343 369 1343; Mul 1082 449 1330; Add 1152 1343 1082;
  Add 1656 1656 1152; Add 1476 1476 1656; Sub 1399 1399 1476; Add 1599 1599 1399; Mul 1399 5 1599;
  Mul 1476 732 1485; Add 1399 1399 1476; Add 1701 1701 1399; Mul 1399 286 1508; Mul 1476 212 1399;
  Mul 1476 107 1476; Mul 1656 745 1303; Mul 1152 737 1303; Mul 1560 9 1399; Add 1152 1152 1560;
  Mul 1560 743 1322; Mul 1685 286 1259; Mul 1501 8 1685; Add 1560 1560 1501; Sub 1152 1152 1560;
  Mul 1560 269 1152; Mul 1501 81 1560; Mul 1418 746 1669; Mul 1452 743 1303; Mul 1382 9 1685;
  Sub 1452 1452 1382; Mul 1399 8 1399; Mul 1382 737 1322; Sub 1399 1399 1382; Sub 1452 1452 1399;
  Mul 1399 53 1452; Add 1418 1418 1399; Mul 1399 66 1152; Mul 1382 742 1052; Sub 1399 1399 1382;
  Add 1418 1418 1399; Mul 1399 323 1418; Mul 1382 47 1399; Mul 1129 378 1418; Mul 1238 24 1129;
  Mul 1171 752 1408; Mul 1616 66 1452; Mul 1307 746 1052; Sub 1616 1616 1307; Mul 1307 742 1669;
  Mul 1152 53 1152; Add 1307 1307 1152; Sub 1616 1616 1307; Mul 1307 35 1616; Add 1171 1171 1307;
  Mul 1307 378 1171; Mul 1152 31 1307; Sub 1238 1238 1152; Mul 1152 753 1514; Mul 1290 15 1171;
  Add 1152 1152 1290; Mul 1290 16 1418; Mul 1100 747 1136; Sub 1290 1290 1100; Add 1152 1152 1290;
  Mul 1152 430 1152; Mul 1290 26 1152; Mul 1171 16 1171; Mul 1100 753 1136; Sub 1171 1171 1100;
  Mul 1100 747 1514; Mul 1418 15 1418; Add 1100 1100 1418; Sub 1171 1171 1100; Mul 1171 430 1171;
  Mul 1100 28 1171; Sub 1290 1290 1100; Mul 1100 16 1152; Mul 1418 755 1136; Sub 1100 1100 1418;
  Mul 1418 757 1514; Mul 1361 15 1171; Add 1418 1418 1361; Sub 1100 1100 1418].
Definition casadi_f0_797 : list instruction := [
  Mul 1418 25 1100; Mul 1361 16 1171; Mul 1612 757 1136; Sub 1361 1361 1612; Mul 1612 755 1514;
  Mul 1282 15 1152; Add 1612 1612 1282; Add 1361 1361 1612; Mul 1612 32 1361; Sub 1418 1418 1612;
  Add 1418 1290 1418; Add 1238 1238 1418; Mul 1418 19 1238; Mul 1612 751 1504; Sub 1418 1418 1612;
  Mul 1612 763 1408; Mul 1282 19 1616; Mul 1543 752 1504; Sub 1282 1282 1543; Mul 1543 378 1282;
  Mul 1291 31 1543; Mul 1035 380 1129; Sub 1291 1291 1035; Mul 1282 430 1282; Mul 1035 28 1282;
  Mul 1152 433 1152; Sub 1035 1035 1152; Mul 1152 16 1035; Mul 1686 764 1136; Sub 1152 1152 1686;
  Mul 1686 766 1514; Mul 1171 433 1171; Mul 1678 26 1282; Sub 1171 1171 1678; Mul 1678 15 1171;
  Add 1686 1686 1678; Add 1152 1152 1686; Mul 1686 32 1282; Mul 1678 198 1100; Sub 1686 1686 1678;
  Add 1152 1152 1686; Add 1291 1291 1152; Mul 1152 35 1291; Add 1612 1612 1152; Add 1418 1418 1612;
  Add 1129 1129 1100; Mul 1100 48 1129; Add 1612 1307 1361; Mul 1152 19 1612; Mul 1686 765 1504;
  Sub 1152 1152 1686; Mul 1686 768 1408; Add 1678 1543 1282; Mul 1026 35 1678; Add 1686 1686 1026;
  Sub 1152 1152 1686; Mul 1686 55 1152; Sub 1100 1100 1686; Add 1418 1418 1100; Add 1382 1382 1418;
  Mul 1418 66 1382; Mul 1100 749 1052; Sub 1418 1418 1100; Mul 1100 762 1669; Mul 1307 380 1307;
  Mul 1543 24 1543; Sub 1307 1307 1543; Mul 1171 16 1171; Mul 1136 766 1136; Sub 1171 1171 1136;
  Mul 1514 764 1514; Mul 1035 15 1035; Add 1514 1514 1035; Sub 1171 1171 1514; Mul 1361 198 1361;
  Mul 1282 25 1282; Sub 1361 1361 1282; Add 1171 1171 1361; Add 1307 1307 1171; Mul 1171 62 1152;
  Mul 1678 19 1678; Mul 1361 768 1504; Sub 1678 1678 1361; Mul 1361 765 1408; Mul 1612 35 1612;
  Add 1361 1361 1612; Add 1678 1678 1361; Mul 1361 48 1678; Sub 1171 1171 1361; Add 1171 1307 1171;
  Mul 1616 323 1616; Mul 1361 47 1616; Sub 1171 1171 1361; Mul 1361 53 1171; Add 1100 1100 1361;
  Add 1418 1418 1100; Mul 1100 86 1152; Sub 1418 1418 1100; Add 1501 1501 1418; Mul 1418 9 1501;
  Add 1656 1656 1418; Mul 1171 66 1171; Mul 1418 762 1052; Sub 1171 1171 1418; Mul 1418 749 1669;
  Mul 1382 53 1382; Add 1418 1418 1382; Sub 1171 1171 1418; Mul 1418 91 1152; Add 1171 1171 1418;
  Mul 1452 269 1452; Mul 1418 81 1452; Sub 1171 1171 1418; Mul 1418 8 1171; Mul 1382 758 1322;
  Sub 1418 1418 1382; Add 1656 1656 1418; Mul 1152 102 1152; Add 1418 1616 1678; Mul 1382 66 1418;
  Mul 1100 770 1052; Sub 1382 1382 1100; Mul 1100 772 1669; Add 1361 1399 1129; Mul 1612 53 1361;
  Add 1100 1100 1612; Add 1382 1382 1100; Add 1100 1452 1382; Mul 1612 8 1100; Mul 1282 773 1322;
  Sub 1612 1612 1282; Mul 1282 776 1303; Mul 1361 66 1361; Mul 1052 772 1052; Sub 1361 1361 1052;
  Mul 1669 770 1669; Mul 1418 53 1418; Add 1669 1669 1418; Sub 1361 1361 1669; Add 1669 1560 1361;
  Mul 1418 9 1669; Add 1282 1282 1418; Sub 1612 1612 1282; Mul 1612 108 1612; Sub 1152 1152 1612;
  Add 1656 1656 1152; Add 1476 1476 1656; Mul 1476 114 1476; Mul 1259 740 1259].
Definition casadi_f0_798 : list instruction := [
  Sub 1476 1476 1259; Mul 1508 774 1508; Mul 1501 8 1501; Mul 1259 745 1322; Sub 1501 1501 1259;
  Mul 1259 758 1303; Mul 1171 9 1171; Add 1259 1259 1171; Sub 1501 1501 1259; Mul 1303 773 1303;
  Mul 1100 9 1100; Add 1303 1303 1100; Mul 1669 8 1669; Mul 1322 776 1322; Sub 1669 1669 1322;
  Add 1303 1303 1669; Mul 1669 108 1303; Add 1501 1501 1669; Mul 1685 212 1685; Mul 1669 107 1685;
  Sub 1501 1501 1669; Mul 1501 113 1501; Add 1508 1508 1501; Sub 1476 1476 1508; Add 1701 1701 1476;
  Mul 1476 210 1701; Sub 1183 1183 1476; Div 1476 1695 92; Mul 1508 1069 1377; Sub 1476 1476 1508;
  Mul 1508 779 1476; Add 1150 1150 1697; Add 1521 1521 1518; Sub 1150 1150 1521; Add 1421 1421 1705;
  Add 1371 1371 1698; Sub 1421 1421 1371; Add 1230 1230 1421; Sub 1150 1150 1230; Add 1150 1150 1539;
  Add 1213 1213 1661; Add 1105 1105 1053; Sub 1213 1213 1105; Add 1108 1108 1601; Add 1564 1564 1674;
  Add 1108 1108 1564; Add 1272 1272 1618; Add 1579 1579 1547; Sub 1272 1272 1579; Add 1108 1108 1272;
  Sub 1213 1213 1108; Add 1213 1213 1320; Add 1577 1577 1621; Add 1339 1339 1224; Sub 1577 1577 1339;
  Add 1550 1550 1267; Add 1398 1398 1422; Add 1550 1550 1398; Add 1611 1611 1149; Add 1496 1496 1392;
  Sub 1611 1611 1496; Add 1550 1550 1611; Sub 1577 1577 1550; Add 1577 1577 1236; Add 1479 1479 1682;
  Add 1512 1512 1204; Sub 1479 1479 1512; Add 1124 1124 1097; Add 1228 1228 1477; Add 1124 1124 1228;
  Add 1447 1447 1435; Add 1101 1101 1666; Sub 1447 1447 1101; Add 1124 1124 1447; Sub 1479 1479 1124;
  Add 1479 1479 1634; Add 1354 1354 1545; Add 1554 1554 1645; Sub 1354 1354 1554; Add 1103 1103 1687;
  Add 1380 1380 1511; Add 1103 1103 1380; Add 1500 1500 1310; Add 1051 1051 1566; Sub 1500 1500 1051;
  Add 1103 1103 1500; Sub 1354 1354 1103; Add 1354 1354 1098; Add 1479 1479 1354; Add 1577 1577 1479;
  Add 1213 1213 1577; Add 1150 1150 1213; Mul 1150 216 1150; Mul 1098 780 1276; Sub 1150 1150 1098;
  Mul 1098 781 1359; Add 1680 1680 1231; Add 1575 1575 1597; Sub 1680 1680 1575; Sub 1653 1653 1680;
  Add 1263 1263 1563; Add 1465 1465 1090; Sub 1263 1263 1465; Add 1653 1653 1263; Sub 1653 1653 1147;
  Add 1088 1088 1423; Add 1048 1048 1268; Sub 1088 1088 1048; Add 1660 1660 1168; Add 1520 1520 1177;
  Add 1660 1660 1520; Add 1137 1137 1318; Add 1338 1338 1191; Sub 1137 1137 1338; Add 1660 1660 1137;
  Sub 1088 1088 1660; Sub 1088 1088 1333; Add 1017 1017 1474; Add 1542 1542 1620; Sub 1017 1017 1542;
  Add 1583 1583 1024; Add 1460 1460 1112; Add 1583 1583 1460; Add 1071 1071 1170; Add 1658 1658 1407;
  Sub 1071 1071 1658; Add 1583 1583 1071; Sub 1017 1017 1583; Sub 1017 1017 1439; Add 1196 1196 1505;
  Add 1036 1036 1245; Sub 1196 1196 1036; Add 1624 1624 1349; Add 1375 1375 1233; Add 1624 1624 1375;
  Add 1308 1308 1075; Add 1515 1515 1585; Sub 1308 1308 1515; Add 1624 1624 1308; Sub 1196 1196 1624;
  Sub 1196 1196 1639; Add 1436 1436 1132; Add 1174 1174 1670; Sub 1436 1436 1174; Add 1154 1154 1434;
  Add 1528 1528 1470; Add 1154 1154 1528; Add 1466 1466 1241; Add 1578 1578 1416].
Definition casadi_f0_799 : list instruction := [
  Sub 1466 1466 1578; Add 1154 1154 1466; Sub 1436 1436 1154; Sub 1436 1436 1607; Add 1196 1196 1436;
  Add 1017 1017 1196; Add 1088 1088 1017; Add 1653 1653 1088; Mul 1653 215 1653; Add 1098 1098 1653;
  Sub 1150 1150 1098; Sub 1145 1145 1239; Sub 1613 1613 1632; Sub 1217 1217 1116; Sub 1032 1032 1179;
  Sub 1454 1454 1216; Add 1032 1032 1454; Add 1217 1217 1032; Add 1613 1613 1217; Add 1145 1145 1613;
  Mul 1145 540 1145; Mul 1239 625 1246; Sub 1145 1145 1239; Mul 1239 651 1556; Sub 1610 1610 1084;
  Add 1047 1047 1199; Add 1604 1604 1586; Add 1497 1497 1122; Add 1087 1087 1394; Add 1497 1497 1087;
  Add 1604 1604 1497; Add 1047 1047 1604; Add 1610 1610 1047; Mul 1610 544 1610; Add 1239 1239 1610;
  Add 1145 1145 1239; Sub 1150 1150 1145; Mul 1150 0 1150; Mul 1145 23 1288; Add 1150 1150 1145;
  Mul 1486 508 1486; Mul 1145 534 1573; Add 1486 1486 1145; Add 1254 1254 1337; Mul 1271 482 1271;
  Mul 1400 511 1400; Add 1271 1271 1400; Sub 1254 1254 1271; Add 1378 1378 1254; Mul 1440 490 1440;
  Mul 1647 514 1647; Add 1440 1440 1647; Sub 1378 1378 1440; Add 1411 1411 1378; Mul 1022 498 1022;
  Mul 1325 518 1325; Add 1022 1022 1325; Sub 1411 1411 1022; Add 1524 1524 1411; Mul 1189 522 1189;
  Mul 1289 506 1289; Sub 1189 1189 1289; Sub 1524 1524 1189; Mul 1189 526 1524; Mul 1289 784 1533;
  Add 1189 1189 1289; Add 1603 1603 1016; Mul 1346 1304 1346; Add 1631 1631 1346; Mul 1631 20 1631;
  Add 1603 1603 1631; Add 1420 1420 1603; Mul 1484 1153 1484; Add 1576 1576 1484; Mul 1576 37 1576;
  Add 1420 1420 1576; Add 1232 1232 1420; Mul 1350 1212 1350; Add 1648 1648 1350; Mul 1648 80 1648;
  Add 1232 1232 1648; Add 1089 1089 1232; Mul 1074 1293 1074; Add 1426 1426 1074; Mul 1426 100 1426;
  Sub 1089 1089 1426; Mul 1089 536 1089; Mul 1426 496 1211; Add 1089 1089 1426; Add 1189 1189 1089;
  Sub 1486 1486 1189; Mul 1189 546 1655; Mul 1089 538 1060; Add 1189 1189 1089; Mul 1089 791 1363;
  Mul 1133 215 1133; Mul 1426 222 1359; Add 1133 1133 1426; Mul 1234 216 1234; Mul 1426 229 1276;
  Sub 1234 1234 1426; Sub 1133 1133 1234; Mul 1234 540 1552; Mul 1426 227 1246; Sub 1234 1234 1426;
  Mul 1426 544 1605; Mul 1648 219 1556; Add 1426 1426 1648; Sub 1234 1234 1426; Add 1133 1133 1234;
  Mul 1234 526 1256; Mul 1426 543 1533; Add 1234 1234 1426; Mul 1363 536 1363; Mul 1426 537 1211;
  Add 1363 1363 1426; Sub 1234 1234 1363; Sub 1234 1133 1234; Mul 1234 141 1234; Mul 1363 537 1234;
  Add 1089 1089 1363; Sub 1189 1189 1089; Add 1486 1486 1189; Mul 1189 556 1096; Mul 1021 560 1021;
  Add 1089 1189 1021; Sub 1406 1089 1406; Sub 1427 1079 1427; Sub 1538 1242 1538; Add 1427 1427 1538;
  Add 1021 1021 1189; Sub 1494 1494 1021; Add 1427 1427 1494; Sub 1406 1406 1427; Mul 1427 570 1198;
  Mul 1487 574 1487; Add 1494 1427 1487; Sub 1650 1494 1650; Sub 1206 1206 1525; Sub 1219 1219 1430;
  Add 1206 1206 1219; Add 1487 1487 1427; Sub 1237 1237 1487; Add 1206 1206 1237; Sub 1650 1650 1206;
  Mul 1206 584 1467; Mul 1681 588 1681; Add 1237 1206 1681; Sub 1665 1237 1665].
Definition casadi_f0_800 : list instruction := [
  Sub 1182 1182 1327; Sub 1429 1429 1018; Add 1182 1182 1429; Add 1681 1681 1206; Sub 1223 1223 1681;
  Add 1182 1182 1223; Sub 1665 1665 1182; Mul 1182 597 1458; Mul 1627 601 1627; Add 1223 1182 1627;
  Sub 1469 1223 1469; Sub 1617 1617 1287; Sub 1104 1104 1608; Add 1617 1617 1104; Add 1627 1627 1182;
  Sub 1548 1548 1627; Add 1617 1617 1548; Sub 1469 1469 1617; Mul 1617 610 1257; Mul 1151 614 1151;
  Add 1548 1617 1151; Sub 1483 1548 1483; Sub 1473 1473 1277; Sub 1541 1541 1297; Add 1473 1473 1541;
  Add 1151 1151 1617; Sub 1646 1646 1151; Add 1473 1473 1646; Sub 1483 1483 1473; Add 1469 1469 1483;
  Add 1665 1665 1469; Add 1650 1650 1665; Add 1406 1406 1650; Mul 1406 216 1406; Mul 1473 251 1276;
  Sub 1406 1406 1473; Mul 1473 230 1159; Mul 1651 225 1651; Add 1646 1473 1651; Mul 1279 231 1279;
  Mul 1617 223 1042; Sub 1279 1279 1617; Sub 1646 1646 1279; Mul 1210 560 1210; Mul 1617 553 1096;
  Add 1541 1210 1617; Mul 1209 244 1209; Mul 1459 248 1459; Add 1297 1209 1459; Sub 1541 1541 1297;
  Sub 1646 1646 1541; Mul 1096 558 1096; Mul 1636 560 1636; Add 1541 1096 1636; Mul 1365 243 1365;
  Mul 1319 249 1319; Add 1297 1365 1319; Sub 1541 1541 1297; Add 1646 1646 1541; Mul 1509 219 1509;
  Mul 1605 239 1605; Add 1509 1509 1605; Mul 1110 227 1110; Mul 1552 246 1552; Add 1110 1110 1552;
  Add 1509 1509 1110; Mul 1522 467 1522; Mul 1455 525 1455; Sub 1522 1522 1455; Add 1509 1509 1522;
  Mul 1247 231 1247; Mul 1522 559 1042; Sub 1247 1247 1522; Mul 1522 616 1159; Mul 1503 225 1503;
  Add 1522 1522 1503; Add 1247 1247 1522; Add 1509 1509 1247; Mul 1509 213 1509; Sub 1646 1646 1509;
  Mul 1247 572 1198; Mul 1055 574 1055; Add 1522 1247 1055; Mul 1081 284 1081; Mul 1703 258 1703;
  Add 1503 1081 1703; Sub 1522 1522 1503; Mul 1503 297 1367; Mul 1455 271 1667; Add 1110 1503 1455;
  Mul 1552 282 1671; Mul 1605 300 1491; Add 1541 1552 1605; Add 1110 1110 1541; Mul 1675 574 1675;
  Mul 1198 567 1198; Add 1541 1675 1198; Mul 1410 279 1410; Mul 1200 276 1200; Add 1297 1410 1200;
  Sub 1541 1541 1297; Add 1110 1110 1541; Sub 1522 1522 1110; Mul 1121 255 1121; Mul 1110 280 1549;
  Add 1121 1121 1110; Mul 1499 278 1499; Mul 1110 266 1102; Add 1499 1499 1110; Add 1121 1121 1499;
  Mul 1475 296 1475; Mul 1093 472 1093; Add 1475 1475 1093; Add 1121 1121 1475; Mul 1475 573 1491;
  Mul 1562 282 1562; Add 1475 1475 1562; Mul 1562 617 1367; Mul 1502 271 1502; Add 1562 1562 1502;
  Sub 1475 1475 1562; Add 1121 1121 1475; Mul 1121 213 1121; Sub 1522 1522 1121; Mul 1475 586 1467;
  Mul 1172 588 1172; Add 1562 1475 1172; Mul 1589 338 1589; Mul 1443 312 1443; Add 1502 1589 1443;
  Sub 1562 1562 1502; Mul 1502 351 1692; Mul 1093 325 1450; Add 1499 1502 1093; Mul 1110 336 1167;
  Mul 1541 354 1062; Add 1297 1110 1541; Add 1499 1499 1297; Mul 1536 588 1536; Mul 1467 581 1467;
  Add 1297 1536 1467; Mul 1376 333 1376; Mul 1642 330 1642; Add 1277 1376 1642; Sub 1297 1297 1277;
  Add 1499 1499 1297; Sub 1562 1562 1499; Mul 1664 309 1664; Mul 1499 334 1451].
Definition casadi_f0_801 : list instruction := [
  Add 1664 1664 1499; Mul 1123 332 1123; Mul 1499 320 1315; Add 1123 1123 1499; Add 1664 1664 1123;
  Mul 1640 349 1640; Mul 1131 474 1131; Add 1640 1640 1131; Add 1664 1664 1640; Mul 1640 587 1062;
  Mul 1606 336 1606; Add 1640 1640 1606; Mul 1606 619 1692; Mul 1258 325 1258; Add 1606 1606 1258;
  Sub 1640 1640 1606; Add 1664 1664 1640; Mul 1664 213 1664; Sub 1562 1562 1664; Mul 1640 599 1458;
  Mul 1571 601 1571; Add 1606 1640 1571; Mul 1396 393 1396; Mul 1140 366 1140; Add 1258 1396 1140;
  Sub 1606 1606 1258; Mul 1258 406 1537; Mul 1131 381 1488; Add 1123 1258 1131; Mul 1499 391 1034;
  Mul 1297 409 1244; Add 1277 1499 1297; Add 1123 1123 1277; Mul 1546 601 1546; Mul 1458 594 1458;
  Add 1277 1546 1458; Mul 1679 388 1679; Mul 1412 385 1412; Add 1182 1679 1412; Sub 1277 1277 1182;
  Add 1123 1123 1277; Sub 1606 1606 1123; Mul 1591 363 1591; Mul 1123 389 1083; Add 1591 1591 1123;
  Mul 1409 387 1409; Mul 1123 374 1351; Add 1409 1409 1123; Add 1591 1591 1409; Mul 1345 405 1345;
  Mul 1119 476 1119; Add 1345 1345 1119; Add 1591 1591 1345; Mul 1345 600 1244; Mul 1190 391 1190;
  Add 1345 1345 1190; Mul 1190 621 1537; Mul 1195 381 1195; Add 1190 1190 1195; Sub 1345 1345 1190;
  Add 1591 1591 1345; Mul 1591 213 1591; Sub 1606 1606 1591; Mul 1345 612 1257; Mul 1595 614 1595;
  Add 1190 1345 1595; Mul 1677 447 1677; Mul 1558 420 1558; Add 1195 1677 1558; Sub 1190 1190 1195;
  Mul 1195 460 1641; Mul 1119 434 1300; Add 1409 1195 1119; Mul 1123 445 1164; Mul 1277 463 1248;
  Add 1182 1123 1277; Add 1409 1409 1182; Mul 1694 614 1694; Mul 1257 607 1257; Add 1182 1694 1257;
  Mul 1449 442 1449; Mul 1673 439 1673; Add 1104 1449 1673; Sub 1182 1182 1104; Add 1409 1409 1182;
  Sub 1190 1190 1409; Mul 1409 417 1037; Mul 1182 443 1478; Add 1409 1409 1182; Mul 1182 441 1324;
  Mul 1104 426 1348; Add 1182 1182 1104; Add 1409 1409 1182; Mul 1182 459 1143; Mul 1305 478 1305;
  Add 1182 1182 1305; Add 1409 1409 1182; Mul 1182 611 1248; Mul 1181 445 1181; Add 1182 1182 1181;
  Mul 1181 623 1641; Mul 1292 434 1292; Add 1181 1181 1292; Sub 1182 1182 1181; Add 1409 1409 1182;
  Mul 1409 213 1409; Sub 1190 1190 1409; Add 1606 1606 1190; Add 1562 1562 1606; Add 1522 1522 1562;
  Add 1646 1646 1522; Mul 1646 215 1646; Mul 1182 470 1359; Add 1646 1646 1182; Sub 1406 1406 1646;
  Mul 1646 225 1523; Mul 1182 624 1159; Add 1181 1646 1182; Mul 1292 231 1326; Mul 1305 650 1042;
  Sub 1292 1292 1305; Sub 1181 1181 1292; Mul 1086 213 1086; Add 1305 1181 1086; Mul 1491 655 1491;
  Mul 1148 282 1148; Add 1104 1491 1148; Sub 1104 1417 1104; Mul 1480 271 1480; Mul 1367 629 1367;
  Add 1608 1480 1367; Add 1104 1104 1608; Mul 1275 213 1275; Sub 1608 1104 1275; Mul 1062 659 1062;
  Mul 1038 336 1038; Add 1287 1062 1038; Sub 1287 1638 1287; Mul 1683 325 1683; Mul 1692 634 1692;
  Add 1206 1683 1692; Add 1287 1287 1206; Mul 1207 213 1207; Sub 1206 1287 1207; Mul 1244 663 1244;
  Mul 1130 391 1130; Add 1429 1244 1130; Sub 1429 1335 1429; Mul 1649 381 1649].
Definition casadi_f0_802 : list instruction := [
  Mul 1537 639 1537; Add 1018 1649 1537; Add 1429 1429 1018; Mul 1225 213 1225; Sub 1018 1429 1225;
  Mul 1327 667 1248; Mul 1340 445 1340; Add 1427 1327 1340; Sub 1427 1574 1427; Mul 1559 434 1559;
  Mul 1219 644 1641; Add 1430 1559 1219; Add 1427 1427 1430; Mul 1251 213 1251; Sub 1430 1427 1251;
  Add 1018 1018 1430; Add 1206 1206 1018; Add 1608 1608 1206; Add 1305 1305 1608; Mul 1305 540 1305;
  Mul 1525 250 1246; Sub 1305 1305 1525; Mul 1326 225 1326; Mul 1159 650 1159; Add 1525 1326 1159;
  Mul 1523 231 1523; Mul 1042 624 1042; Sub 1523 1523 1042; Add 1159 1159 1326; Mul 1463 242 1463;
  Mul 1654 626 1654; Sub 1463 1463 1654; Add 1654 1159 1463; Add 1326 1523 1654; Sub 1326 1525 1326;
  Add 1525 1525 1463; Add 1523 1523 1525; Sub 1159 1159 1523; Sub 1326 1326 1159; Sub 1644 1644 1126;
  Sub 1699 1699 1158; Sub 1644 1644 1699; Sub 1125 1125 1659; Sub 1527 1527 1253; Sub 1125 1125 1527;
  Sub 1141 1141 1425; Sub 1471 1471 1226; Sub 1141 1141 1471; Sub 1094 1094 1255; Sub 1622 1622 1283;
  Sub 1094 1094 1622; Add 1141 1141 1094; Add 1125 1125 1141; Add 1644 1644 1125; Add 1326 1326 1644;
  Mul 1622 544 1326; Mul 1283 806 1556; Add 1622 1622 1283; Add 1305 1305 1622; Sub 1406 1406 1305;
  Add 1486 1486 1406; Mul 1486 216 1486; Mul 1406 652 1276; Sub 1486 1486 1406; Mul 1406 804 1359;
  Mul 1688 508 1688; Mul 1305 521 1573; Add 1688 1688 1305; Add 1432 1432 1346; Mul 1432 20 1432;
  Add 1227 1227 1572; Sub 1432 1432 1227; Sub 1438 1432 1438; Add 1419 1419 1484; Mul 1419 37 1419;
  Add 1438 1438 1419; Sub 1628 1438 1628; Add 1157 1157 1350; Mul 1157 80 1157; Add 1628 1628 1157;
  Add 1284 1284 1628; Sub 1099 1099 1074; Mul 1099 100 1099; Add 1284 1284 1099; Mul 1284 526 1284;
  Mul 1099 499 1533; Add 1284 1284 1099; Mul 1524 536 1524; Mul 1099 784 1211; Add 1524 1524 1099;
  Add 1284 1284 1524; Sub 1688 1688 1284; Mul 1256 791 1256; Mul 1234 543 1234; Add 1256 1256 1234;
  Mul 1655 539 1655; Mul 1234 538 1347; Add 1655 1655 1234; Sub 1256 1256 1655; Add 1688 1688 1256;
  Add 1651 1651 1473; Sub 1651 1651 1279; Add 1319 1319 1365; Add 1636 1636 1096; Sub 1319 1319 1636;
  Sub 1651 1651 1319; Add 1459 1459 1209; Add 1617 1617 1210; Sub 1459 1459 1617; Add 1651 1651 1459;
  Add 1651 1651 1509; Add 1200 1200 1410; Add 1198 1198 1675; Sub 1200 1200 1198; Add 1605 1605 1552;
  Add 1455 1455 1503; Add 1605 1605 1455; Add 1703 1703 1081; Add 1055 1055 1247; Sub 1703 1703 1055;
  Add 1605 1605 1703; Sub 1200 1200 1605; Add 1200 1200 1121; Add 1642 1642 1376; Add 1467 1467 1536;
  Sub 1642 1642 1467; Add 1541 1541 1110; Add 1093 1093 1502; Add 1541 1541 1093; Add 1443 1443 1589;
  Add 1172 1172 1475; Sub 1443 1443 1172; Add 1541 1541 1443; Sub 1642 1642 1541; Add 1642 1642 1664;
  Add 1412 1412 1679; Add 1458 1458 1546; Sub 1412 1412 1458; Add 1297 1297 1499; Add 1131 1131 1258;
  Add 1297 1297 1131; Add 1140 1140 1396; Add 1571 1571 1640; Sub 1140 1140 1571; Add 1297 1297 1140;
  Sub 1412 1412 1297; Add 1412 1412 1591; Add 1673 1673 1449; Add 1257 1257 1694].
Definition casadi_f0_803 : list instruction := [
  Sub 1673 1673 1257; Add 1277 1277 1123; Add 1119 1119 1195; Add 1277 1277 1119; Add 1558 1558 1677;
  Add 1595 1595 1345; Sub 1558 1558 1595; Add 1277 1277 1558; Sub 1673 1673 1277; Add 1673 1673 1409;
  Add 1412 1412 1673; Add 1642 1642 1412; Add 1200 1200 1642; Add 1651 1651 1200; Mul 1651 216 1651;
  Mul 1409 507 1276; Sub 1651 1651 1409; Add 1242 1242 1079; Sub 1021 1021 1329; Sub 1242 1242 1021;
  Sub 1489 1489 1089; Add 1242 1242 1489; Add 1203 1203 1492; Sub 1487 1487 1353; Sub 1203 1203 1487;
  Sub 1386 1386 1494; Add 1203 1203 1386; Add 1482 1482 1456; Sub 1681 1681 1588; Sub 1482 1482 1681;
  Sub 1185 1185 1237; Add 1482 1482 1185; Add 1139 1139 1019; Sub 1627 1627 1358; Sub 1139 1139 1627;
  Sub 1111 1111 1223; Add 1139 1139 1111; Add 1413 1413 1362; Sub 1151 1151 1633; Sub 1413 1413 1151;
  Sub 1165 1165 1548; Add 1413 1413 1165; Add 1139 1139 1413; Add 1482 1482 1139; Add 1203 1203 1482;
  Add 1242 1242 1203; Mul 1242 215 1242; Mul 1165 226 1359; Add 1242 1242 1165; Sub 1651 1651 1242;
  Sub 1525 1525 1654; Sub 1134 1134 1540; Sub 1565 1565 1672; Sub 1625 1625 1243; Sub 1240 1240 1594;
  Add 1625 1625 1240; Add 1565 1565 1625; Add 1134 1134 1565; Add 1525 1525 1134; Mul 1594 540 1525;
  Mul 1243 805 1246; Sub 1594 1594 1243; Add 1182 1182 1646; Sub 1292 1292 1182; Sub 1182 1292 1086;
  Add 1148 1148 1491; Add 1367 1367 1480; Add 1417 1417 1367; Sub 1148 1148 1417; Add 1417 1148 1275;
  Add 1038 1038 1062; Add 1692 1692 1683; Add 1638 1638 1692; Sub 1038 1038 1638; Add 1638 1038 1207;
  Add 1130 1130 1244; Add 1537 1537 1649; Add 1335 1335 1537; Sub 1130 1130 1335; Add 1335 1130 1225;
  Add 1340 1340 1327; Add 1219 1219 1559; Add 1574 1574 1219; Sub 1340 1340 1574; Add 1574 1340 1251;
  Add 1335 1335 1574; Add 1638 1638 1335; Add 1417 1417 1638; Add 1182 1182 1417; Mul 1182 544 1182;
  Mul 1219 693 1556; Add 1182 1182 1219; Add 1594 1594 1182; Sub 1651 1651 1594; Add 1688 1688 1651;
  Mul 1688 215 1688; Add 1406 1406 1688; Sub 1486 1486 1406; Sub 1181 1181 1086; Add 1104 1104 1275;
  Add 1287 1287 1207; Add 1429 1429 1225; Add 1427 1427 1251; Add 1429 1429 1427; Add 1287 1287 1429;
  Add 1104 1104 1287; Add 1181 1181 1104; Mul 1181 216 1181; Mul 1406 305 1276; Sub 1181 1181 1406;
  Mul 1525 215 1525; Mul 1406 805 1359; Add 1525 1525 1406; Sub 1181 1181 1525; Add 1060 1060 1181;
  Mul 1060 540 1060; Mul 1181 307 1246; Sub 1060 1060 1181; Mul 1181 360 1556; Mul 1326 216 1326;
  Mul 1525 806 1276; Sub 1326 1326 1525; Add 1292 1292 1086; Sub 1148 1148 1275; Sub 1038 1038 1207;
  Sub 1130 1130 1225; Sub 1340 1340 1251; Add 1130 1130 1340; Add 1038 1038 1130; Add 1148 1148 1038;
  Add 1292 1292 1148; Mul 1292 215 1292; Mul 1251 700 1359; Add 1292 1292 1251; Sub 1326 1326 1292;
  Add 1347 1347 1326; Mul 1347 544 1347; Add 1181 1181 1347; Add 1060 1060 1181; Sub 1486 1486 1060;
  Mul 1486 1 1486; Mul 1060 469 1532; Add 1486 1486 1060; Add 1150 1150 1486; Mul 1486 602 1411;
  Mul 1060 783 1704; Add 1486 1486 1060; Mul 1060 670 1232; Mul 1181 488 1360].
Definition casadi_f0_804 : list instruction := [
  Add 1060 1060 1181; Add 1486 1486 1060; Mul 1060 671 1030; Mul 1181 532 1370; Add 1060 1060 1181;
  Sub 1486 1486 1060; Mul 1060 679 1369; Mul 1181 523 1384; Add 1060 1060 1181; Mul 1181 796 1229;
  Mul 1549 680 1549; Mul 1347 255 1663; Add 1549 1549 1347; Mul 1102 674 1102; Mul 1347 278 1598;
  Sub 1102 1102 1347; Sub 1549 1549 1102; Mul 1313 216 1313; Mul 1102 294 1276; Sub 1313 1313 1102;
  Mul 1388 215 1388; Mul 1102 299 1359; Add 1388 1388 1102; Add 1313 1313 1388; Sub 1549 1549 1313;
  Mul 1313 670 1229; Mul 1388 502 1360; Add 1313 1313 1388; Mul 1388 602 1391; Mul 1102 505 1704;
  Add 1388 1388 1102; Sub 1313 1313 1388; Sub 1313 1549 1313; Mul 1313 672 1313; Mul 1388 502 1313;
  Add 1181 1181 1388; Sub 1060 1060 1181; Add 1486 1486 1060; Mul 1060 674 1608; Mul 1181 794 1598;
  Sub 1060 1060 1181; Mul 1181 680 1644; Mul 1388 689 1663; Add 1102 1181 1388; Add 1415 1415 1265;
  Add 1581 1581 1285; Add 1667 1667 1581; Sub 1415 1415 1667; Add 1667 1415 1199; Add 1448 1448 1580;
  Add 1312 1312 1077; Add 1450 1450 1312; Sub 1448 1448 1450; Add 1450 1448 1586; Add 1593 1593 1513;
  Add 1118 1118 1383; Add 1488 1488 1118; Sub 1593 1593 1488; Add 1488 1593 1122; Add 1495 1495 1587;
  Add 1567 1567 1403; Add 1300 1300 1567; Sub 1495 1495 1300; Add 1300 1495 1394; Add 1488 1488 1300;
  Add 1450 1450 1488; Add 1667 1667 1450; Mul 1667 676 1667; Mul 1567 410 1462; Add 1667 1667 1567;
  Sub 1102 1102 1667; Add 1060 1060 1102; Mul 1102 215 1522; Mul 1667 461 1359; Add 1102 1102 1667;
  Mul 1650 216 1650; Mul 1667 277 1276; Sub 1650 1650 1667; Sub 1102 1102 1650; Add 1060 1060 1102;
  Add 1486 1486 1060; Mul 1486 216 1486; Mul 1060 707 1276; Sub 1486 1486 1060; Mul 1060 793 1359;
  Mul 1102 602 1628; Mul 1667 491 1704; Add 1102 1102 1667; Mul 1667 670 1411; Mul 1567 783 1360;
  Add 1667 1667 1567; Add 1102 1102 1667; Mul 1667 671 1557; Mul 1567 517 1370; Add 1667 1667 1567;
  Sub 1102 1102 1667; Mul 1667 796 1391; Mul 1567 505 1313; Add 1667 1667 1567; Mul 1567 675 1369;
  Mul 1403 523 1107; Add 1567 1567 1403; Sub 1667 1667 1567; Add 1102 1102 1667; Mul 1667 674 1134;
  Mul 1567 682 1598; Sub 1667 1667 1567; Mul 1567 680 1417; Mul 1403 808 1663; Add 1567 1567 1403;
  Add 1441 1441 1393; Sub 1671 1671 1441; Add 1696 1696 1433; Add 1671 1671 1696; Sub 1696 1671 1632;
  Add 1590 1590 1643; Sub 1167 1167 1590; Add 1584 1584 1186; Add 1167 1167 1584; Sub 1584 1167 1116;
  Add 1323 1323 1676; Sub 1034 1034 1323; Add 1481 1481 1684; Add 1034 1034 1481; Sub 1481 1034 1179;
  Add 1453 1453 1535; Sub 1164 1164 1453; Add 1401 1401 1693; Add 1164 1164 1401; Sub 1401 1164 1216;
  Add 1481 1481 1401; Add 1584 1584 1481; Add 1696 1696 1584; Mul 1696 676 1696; Mul 1693 301 1462;
  Add 1696 1696 1693; Sub 1567 1567 1696; Add 1567 1667 1567; Mul 1203 215 1203; Mul 1696 303 1359;
  Add 1693 1203 1696; Mul 1453 216 1200; Mul 1535 468 1276; Sub 1453 1453 1535; Sub 1693 1693 1453;
  Add 1567 1567 1693; Add 1102 1102 1567; Mul 1102 215 1102; Add 1060 1060 1102].
Definition casadi_f0_805 : list instruction := [
  Sub 1102 1486 1060; Mul 1134 215 1134; Mul 1567 682 1359; Add 1693 1134 1567; Mul 1453 216 1104;
  Mul 1535 792 1276; Sub 1453 1453 1535; Sub 1693 1693 1453; Add 1384 1384 1693; Mul 1693 540 1384;
  Mul 1453 233 1246; Sub 1693 1693 1453; Mul 1453 789 1556; Mul 1535 215 1148; Mul 1684 686 1359;
  Add 1535 1535 1684; Mul 1644 216 1644; Mul 1684 689 1276; Sub 1644 1644 1684; Sub 1535 1535 1644;
  Add 1107 1107 1535; Mul 1535 544 1107; Add 1453 1453 1535; Add 1693 1693 1453; Sub 1102 1102 1693;
  Mul 1102 2 1102; Mul 1693 285 1020; Add 1102 1102 1693; Add 1150 1150 1102; Mul 1102 677 1431;
  Mul 1693 530 1142; Add 1102 1102 1693; Mul 1693 706 1378; Mul 1453 782 1690; Add 1693 1693 1453;
  Mul 1453 712 1420; Mul 1535 481 1517; Add 1453 1453 1535; Add 1693 1693 1453; Sub 1102 1102 1693;
  Mul 1693 719 1657; Mul 1453 519 1510; Add 1693 1693 1453; Mul 1453 709 1187; Mul 1689 216 1689;
  Mul 1535 348 1276; Sub 1689 1689 1535; Mul 1493 215 1493; Mul 1535 353 1359; Add 1493 1493 1535;
  Add 1689 1689 1493; Mul 1315 714 1315; Mul 1493 332 1316; Add 1315 1315 1493; Mul 1451 718 1451;
  Mul 1493 309 1506; Add 1451 1451 1493; Sub 1315 1315 1451; Add 1689 1689 1315; Mul 1315 706 1194;
  Mul 1451 497 1690; Add 1315 1315 1451; Mul 1451 712 1187; Mul 1493 494 1517; Add 1451 1451 1493;
  Sub 1315 1315 1451; Sub 1315 1689 1315; Mul 1315 156 1315; Mul 1451 494 1315; Add 1453 1453 1451;
  Sub 1693 1693 1453; Add 1102 1102 1693; Mul 1693 716 1450; Mul 1453 403 1402; Add 1693 1693 1453;
  Mul 1453 718 1125; Mul 1451 696 1506; Add 1493 1453 1451; Sub 1693 1693 1493; Mul 1493 714 1206;
  Mul 1535 797 1316; Add 1493 1493 1535; Sub 1693 1693 1493; Mul 1665 216 1665; Mul 1493 331 1276;
  Sub 1665 1665 1493; Mul 1493 215 1562; Mul 1535 414 1359; Add 1493 1493 1535; Sub 1493 1665 1493;
  Add 1693 1693 1493; Add 1102 1102 1693; Mul 1102 216 1102; Mul 1693 790 1276; Sub 1102 1102 1693;
  Mul 1693 704 1359; Mul 1493 677 1355; Mul 1535 513 1142; Add 1493 1493 1535; Mul 1535 706 1438;
  Mul 1684 483 1690; Add 1535 1535 1684; Mul 1684 712 1378; Mul 1323 782 1517; Add 1684 1684 1323;
  Add 1535 1535 1684; Sub 1493 1493 1535; Mul 1535 709 1194; Mul 1684 497 1315; Add 1535 1535 1684;
  Mul 1684 711 1657; Mul 1323 519 1570; Add 1684 1684 1323; Sub 1535 1535 1684; Add 1493 1493 1535;
  Mul 1535 716 1584; Mul 1684 293 1402; Add 1535 1535 1684; Mul 1684 718 1638; Mul 1323 415 1506;
  Add 1684 1684 1323; Sub 1535 1535 1684; Mul 1684 714 1565; Mul 1323 685 1316; Add 1676 1684 1323;
  Sub 1535 1535 1676; Mul 1676 216 1642; Mul 1186 416 1276; Sub 1676 1676 1186; Mul 1482 215 1482;
  Mul 1186 357 1359; Add 1590 1482 1186; Sub 1676 1676 1590; Add 1535 1535 1676; Add 1493 1493 1535;
  Mul 1493 215 1493; Add 1693 1693 1493; Sub 1493 1102 1693; Mul 1535 216 1287; Mul 1676 795 1276;
  Sub 1535 1535 1676; Mul 1565 215 1565; Mul 1676 685 1359; Add 1590 1565 1676; Sub 1535 1535 1590;
  Add 1510 1510 1535; Mul 1535 540 1510; Mul 1590 697 1246; Sub 1535 1535 1590].
Definition casadi_f0_806 : list instruction := [
  Mul 1590 695 1556; Mul 1125 216 1125; Mul 1643 696 1276; Sub 1125 1125 1643; Mul 1643 215 1038;
  Mul 1433 448 1359; Add 1643 1643 1433; Sub 1643 1125 1643; Add 1570 1570 1643; Mul 1643 544 1570;
  Add 1590 1590 1643; Add 1535 1535 1590; Sub 1535 1493 1535; Mul 1535 3 1535; Mul 1590 691 1092;
  Add 1535 1535 1590; Add 1150 1150 1535; Mul 1535 715 1254; Mul 1590 606 1317; Add 1535 1535 1590;
  Mul 1590 721 1603; Mul 1643 786 1368; Add 1590 1590 1643; Add 1535 1535 1590; Mul 1590 722 1049;
  Mul 1643 528 1114; Add 1590 1590 1643; Add 1535 1535 1590; Mul 1590 730 1444; Mul 1643 515 1144;
  Add 1590 1590 1643; Mul 1643 683 1457; Mul 1295 310 1295; Mul 1433 408 1261; Add 1295 1295 1433;
  Mul 1389 327 1389; Mul 1433 404 1193; Add 1389 1389 1433; Sub 1295 1295 1389; Mul 1083 731 1083;
  Mul 1389 363 1662; Add 1083 1083 1389; Mul 1351 725 1351; Mul 1389 387 1252; Add 1351 1351 1389;
  Sub 1083 1083 1351; Add 1295 1295 1083; Mul 1083 721 1457; Mul 1351 486 1368; Add 1083 1083 1351;
  Mul 1351 715 1156; Mul 1389 489 1317; Add 1351 1351 1389; Sub 1083 1083 1351; Sub 1083 1295 1083;
  Mul 1083 723 1083; Mul 1351 486 1083; Add 1643 1643 1351; Sub 1590 1590 1643; Add 1535 1535 1590;
  Mul 1590 725 1018; Mul 1643 800 1252; Add 1590 1590 1643; Mul 1643 731 1141; Mul 1351 703 1662;
  Add 1389 1643 1351; Mul 1433 727 1488; Mul 1441 306 1507; Add 1433 1433 1441; Add 1389 1389 1433;
  Add 1590 1590 1389; Mul 1389 310 1606; Mul 1433 361 1261; Add 1389 1389 1433; Mul 1469 327 1469;
  Mul 1433 386 1193; Add 1441 1469 1433; Mul 1393 318 1479; Mul 1403 59 1180; Add 1393 1393 1403;
  Add 1441 1441 1393; Add 1389 1389 1441; Sub 1590 1590 1389; Add 1535 1535 1590; Mul 1590 216 1535;
  Mul 1389 690 1276; Sub 1590 1590 1389; Mul 1389 807 1359; Mul 1441 715 1432; Mul 1393 705 1317;
  Add 1441 1441 1393; Mul 1393 721 1254; Mul 1403 606 1368; Add 1393 1393 1403; Add 1441 1441 1393;
  Mul 1393 722 1173; Mul 1403 510 1114; Add 1393 1393 1403; Add 1441 1441 1393; Mul 1393 683 1156;
  Mul 1403 489 1083; Add 1393 1393 1403; Mul 1403 726 1444; Mul 1587 515 1091; Add 1403 1403 1587;
  Sub 1393 1393 1403; Add 1441 1441 1393; Mul 1393 725 1625; Mul 1403 692 1252; Add 1587 1393 1403;
  Mul 1118 731 1335; Mul 1383 465 1662; Add 1118 1118 1383; Mul 1383 727 1481; Mul 1513 785 1507;
  Add 1383 1383 1513; Add 1118 1118 1383; Add 1587 1587 1118; Mul 1139 310 1139; Mul 1118 412 1261;
  Add 1383 1139 1118; Mul 1513 327 1412; Mul 1312 407 1193; Add 1513 1513 1312; Mul 1312 318 1196;
  Mul 1077 580 1180; Add 1312 1312 1077; Add 1513 1513 1312; Add 1383 1383 1513; Sub 1587 1587 1383;
  Add 1441 1441 1587; Mul 1587 215 1441; Add 1389 1389 1587; Sub 1587 1590 1389; Mul 1625 310 1625;
  Mul 1383 692 1261; Add 1513 1625 1383; Mul 1312 327 1429; Mul 1077 798 1193; Add 1312 1312 1077;
  Mul 1077 318 1032; Mul 1580 640 1180; Add 1077 1077 1580; Add 1312 1312 1077; Add 1513 1513 1312;
  Sub 1144 1144 1513; Mul 1513 540 1144; Mul 1312 811 1246; Sub 1513 1513 1312].
Definition casadi_f0_807 : list instruction := [
  Mul 1312 813 1556; Mul 1077 310 1130; Mul 1580 464 1261; Add 1077 1077 1580; Mul 1141 327 1141;
  Mul 1580 703 1193; Add 1581 1141 1580; Mul 1285 318 1497; Mul 1265 662 1180; Add 1285 1285 1265;
  Add 1581 1581 1285; Add 1077 1077 1581; Sub 1091 1091 1077; Mul 1077 544 1091; Add 1312 1312 1077;
  Add 1513 1513 1312; Sub 1513 1587 1513; Mul 1513 4 1513; Mul 1312 812 1135; Add 1513 1513 1312;
  Add 1150 1150 1513; Mul 1513 728 1337; Mul 1312 609 1609; Add 1513 1513 1312; Mul 1312 733 1016;
  Mul 1077 604 1274; Add 1312 1312 1077; Add 1513 1513 1312; Mul 1312 734 1324; Mul 1077 426 1468;
  Add 1312 1312 1077; Add 1513 1513 1312; Mul 1312 739 1442; Mul 1077 438 1215; Add 1312 1312 1077;
  Mul 1077 816 1248; Mul 1424 358 1424; Mul 1581 462 1113; Add 1424 1424 1581; Mul 1691 372 1691;
  Mul 1581 458 1364; Add 1691 1691 1581; Sub 1424 1424 1691; Mul 1478 741 1478; Mul 1691 417 1555;
  Add 1478 1478 1691; Mul 1348 736 1348; Mul 1691 441 1106; Add 1348 1348 1691; Sub 1478 1478 1348;
  Add 1424 1424 1478; Mul 1478 733 1248; Mul 1348 445 1274; Add 1478 1478 1348; Mul 1348 728 1641;
  Mul 1691 434 1609; Add 1348 1348 1691; Sub 1478 1478 1348; Sub 1424 1424 1478; Mul 1424 430 1424;
  Mul 1478 445 1424; Add 1077 1077 1478; Sub 1312 1312 1077; Add 1513 1513 1312; Mul 1312 736 1430;
  Mul 1077 803 1106; Add 1312 1312 1077; Mul 1077 741 1094; Mul 1478 710 1555; Add 1348 1077 1478;
  Mul 1691 738 1300; Mul 1581 356 1278; Add 1691 1691 1581; Add 1348 1348 1691; Add 1312 1312 1348;
  Mul 1348 358 1190; Mul 1691 352 1113; Add 1348 1348 1691; Mul 1483 372 1483; Mul 1691 440 1364;
  Add 1581 1483 1691; Mul 1285 369 1354; Mul 1265 36 1330; Add 1285 1285 1265; Add 1581 1581 1285;
  Add 1348 1348 1581; Sub 1312 1312 1348; Add 1513 1513 1312; Mul 1312 216 1513; Mul 1348 814 1276;
  Sub 1312 1312 1348; Mul 1348 817 1359; Mul 1609 13 1609; Mul 1581 728 1572; Sub 1609 1609 1581;
  Mul 1581 733 1337; Mul 1274 609 1274; Add 1581 1581 1274; Add 1609 1609 1581; Mul 1581 734 1037;
  Mul 1468 443 1468; Add 1581 1581 1468; Add 1609 1609 1581; Mul 1581 816 1641; Mul 1468 434 1424;
  Add 1581 1581 1468; Mul 1468 735 1442; Mul 1274 438 1652; Add 1468 1468 1274; Sub 1581 1581 1468;
  Add 1609 1609 1581; Mul 1581 736 1240; Mul 1468 699 1106; Add 1274 1581 1468; Mul 1285 741 1574;
  Mul 1265 394 1555; Add 1285 1285 1265; Mul 1265 738 1401; Mul 1347 245 1278; Add 1265 1265 1347;
  Add 1285 1285 1265; Add 1274 1274 1285; Mul 1413 358 1413; Mul 1285 466 1113; Add 1265 1413 1285;
  Mul 1347 372 1673; Mul 1326 359 1364; Add 1347 1347 1326; Mul 1326 369 1436; Mul 1292 593 1330;
  Add 1326 1326 1292; Add 1347 1347 1326; Add 1265 1265 1347; Sub 1274 1274 1265; Add 1609 1609 1274;
  Mul 1274 215 1609; Add 1348 1348 1274; Sub 1274 1312 1348; Mul 1240 358 1240; Mul 1265 699 1113;
  Add 1347 1240 1265; Mul 1326 372 1427; Mul 1292 801 1364; Add 1326 1326 1292; Mul 1292 369 1454;
  Mul 1251 645 1330; Add 1292 1292 1251; Add 1326 1326 1292; Add 1347 1347 1326].
Definition casadi_f0_808 : list instruction := [
  Sub 1215 1215 1347; Mul 1347 540 1215; Mul 1326 820 1246; Sub 1347 1347 1326; Mul 1326 822 1556;
  Mul 1292 358 1340; Mul 1251 457 1113; Add 1292 1292 1251; Mul 1094 372 1094; Mul 1251 710 1364;
  Add 1225 1094 1251; Mul 1207 369 1087; Mul 1275 666 1330; Add 1207 1207 1275; Add 1225 1225 1207;
  Add 1292 1292 1225; Sub 1652 1652 1292; Mul 1292 544 1652; Add 1326 1326 1292; Add 1347 1347 1326;
  Sub 1347 1274 1347; Mul 1347 5 1347; Mul 1326 821 1485; Add 1347 1347 1326; Add 1150 1150 1347;
  Mul 1452 85 1452; Mul 1560 79 1560; Sub 1452 1452 1560; Mul 1616 54 1616; Mul 1399 61 1399;
  Sub 1616 1616 1399; Mul 1291 19 1291; Mul 1399 763 1504; Sub 1291 1291 1399; Mul 1399 751 1408;
  Mul 1238 35 1238; Add 1399 1399 1238; Sub 1291 1291 1399; Mul 1678 55 1678; Mul 1129 62 1129;
  Sub 1678 1678 1129; Add 1291 1291 1678; Add 1616 1616 1291; Mul 1382 86 1382; Mul 1361 91 1361;
  Sub 1382 1382 1361; Add 1382 1616 1382; Add 1452 1452 1382; Mul 1303 102 1303; Sub 1303 1452 1303;
  Mul 1685 101 1685; Add 1303 1303 1685; Add 1150 1150 1303; Mul 1303 777 1150; Sub 1508 1508 1303;
  Add 1183 1183 1508; Div 1508 1600 92; Mul 1303 1023 1377; Sub 1508 1508 1303; Mul 1303 767 1508;
  Mul 1613 674 1613; Mul 1685 630 1598; Sub 1613 1613 1685; Mul 1685 654 1663; Mul 1047 680 1047;
  Add 1685 1685 1047; Add 1176 1176 1461; Sub 1685 1685 1176; Add 1613 1613 1685; Mul 1685 615 1359;
  Mul 1088 215 1088; Add 1685 1685 1088; Mul 1213 216 1213; Mul 1088 7 1276; Sub 1213 1213 1088;
  Sub 1685 1685 1213; Add 1613 1613 1685; Mul 1613 0 1613; Mul 1685 771 1288; Add 1613 1613 1685;
  Mul 1685 748 1162; Mul 1213 216 1369; Mul 1088 523 1276; Sub 1213 1213 1088; Add 1213 1598 1213;
  Mul 1213 672 1213; Mul 1088 545 1213; Sub 1685 1685 1088; Mul 1088 216 1229; Mul 1176 502 1276;
  Sub 1088 1088 1176; Mul 1176 215 1391; Mul 1461 505 1359; Add 1176 1176 1461; Add 1088 1088 1176;
  Sub 1088 1088 1462; Mul 1088 672 1088; Mul 1176 504 1088; Mul 1461 750 1133; Add 1176 1176 1461;
  Mul 1461 215 1369; Mul 1047 523 1359; Add 1461 1461 1047; Sub 1461 1663 1461; Mul 1461 672 1461;
  Mul 1047 541 1461; Mul 1382 627 1296; Add 1047 1047 1382; Sub 1176 1176 1047; Add 1685 1685 1176;
  Mul 1557 215 1557; Mul 1176 517 1359; Add 1557 1557 1176; Mul 1030 216 1030; Mul 1176 532 1276;
  Sub 1030 1030 1176; Sub 1557 1557 1030; Mul 1030 627 1229; Mul 1176 502 1461; Add 1030 1030 1176;
  Mul 1176 748 1391; Mul 1047 505 1213; Sub 1176 1176 1047; Sub 1030 1030 1176; Add 1557 1557 1030;
  Mul 1557 508 1557; Mul 1030 744 1573; Add 1557 1557 1030; Mul 1030 215 1411; Mul 1176 783 1359;
  Add 1030 1030 1176; Mul 1232 216 1232; Mul 1176 488 1276; Sub 1232 1232 1176; Sub 1030 1030 1232;
  Mul 1232 748 1369; Mul 1213 523 1213; Sub 1232 1232 1213; Mul 1229 750 1229; Mul 1213 502 1088;
  Add 1229 1229 1213; Sub 1232 1232 1229; Add 1030 1030 1232; Mul 1030 536 1030; Mul 1232 824 1211;
  Add 1030 1030 1232; Sub 1557 1557 1030; Mul 1628 215 1628; Mul 1030 491 1359].
Definition casadi_f0_809 : list instruction := [
  Add 1628 1628 1030; Mul 1411 216 1411; Mul 1030 783 1276; Sub 1411 1411 1030; Sub 1628 1628 1411;
  Mul 1391 750 1391; Mul 1088 505 1088; Add 1391 1391 1088; Mul 1369 627 1369; Mul 1461 523 1461;
  Add 1369 1369 1461; Sub 1391 1391 1369; Add 1628 1628 1391; Mul 1628 526 1628; Mul 1391 825 1533;
  Add 1628 1628 1391; Sub 1557 1557 1628; Add 1685 1685 1557; Mul 1104 674 1104; Mul 1557 792 1598;
  Sub 1104 1104 1557; Add 1388 1388 1181; Mul 1181 298 1462; Sub 1415 1415 1199; Sub 1448 1448 1586;
  Sub 1593 1593 1122; Sub 1495 1495 1394; Add 1593 1593 1495; Add 1448 1448 1593; Add 1415 1415 1448;
  Mul 1394 676 1415; Add 1181 1181 1394; Sub 1388 1388 1181; Add 1104 1104 1388; Mul 1388 468 1359;
  Mul 1200 215 1200; Add 1388 1388 1200; Sub 1388 1388 1650; Add 1104 1104 1388; Mul 1104 216 1104;
  Mul 1388 823 1276; Sub 1104 1104 1388; Mul 1388 686 1663; Mul 1148 680 1148; Add 1388 1388 1148;
  Mul 1148 232 1462; Add 1671 1671 1632; Add 1167 1167 1116; Add 1034 1034 1179; Add 1164 1164 1216;
  Add 1034 1034 1164; Add 1167 1167 1034; Add 1671 1671 1167; Mul 1216 676 1671; Add 1148 1148 1216;
  Sub 1388 1388 1148; Add 1667 1667 1388; Add 1696 1696 1203; Mul 1522 216 1522; Mul 1203 461 1276;
  Sub 1522 1522 1203; Sub 1696 1696 1522; Add 1667 1667 1696; Mul 1667 215 1667; Mul 1696 668 1359;
  Add 1667 1667 1696; Sub 1104 1104 1667; Add 1567 1567 1134; Mul 1608 216 1608; Mul 1134 794 1276;
  Sub 1608 1608 1134; Sub 1567 1567 1608; Mul 1567 540 1567; Mul 1608 664 1246; Sub 1567 1567 1608;
  Mul 1608 808 1359; Mul 1417 215 1417; Add 1608 1608 1417; Sub 1608 1608 1644; Mul 1608 544 1608;
  Mul 1644 642 1556; Add 1608 1608 1644; Add 1567 1567 1608; Sub 1104 1104 1567; Add 1685 1685 1104;
  Mul 1685 1 1685; Mul 1104 760 1532; Add 1685 1685 1104; Add 1613 1613 1685; Mul 1384 674 1384;
  Mul 1685 233 1598; Sub 1384 1384 1685; Mul 1685 789 1663; Mul 1107 680 1107; Add 1685 1685 1107;
  Mul 1107 637 1462; Mul 1671 215 1671; Mul 1104 232 1359; Add 1671 1671 1104; Mul 1415 216 1415;
  Mul 1104 298 1276; Sub 1415 1415 1104; Sub 1671 1671 1415; Add 1313 1313 1671; Mul 1313 676 1313;
  Add 1107 1107 1313; Sub 1685 1685 1107; Add 1384 1384 1685; Sub 1060 1060 1486; Add 1384 1384 1060;
  Mul 1384 2 1384; Mul 1060 826 1020; Add 1384 1384 1060; Add 1613 1613 1384; Mul 1384 674 1510;
  Mul 1060 697 1598; Sub 1384 1384 1060; Mul 1060 695 1663; Mul 1486 680 1570; Add 1060 1060 1486;
  Mul 1486 647 1462; Mul 1685 216 1448; Mul 1107 411 1276; Sub 1685 1685 1107; Mul 1107 215 1167;
  Mul 1313 302 1359; Add 1107 1107 1313; Sub 1685 1685 1107; Add 1315 1315 1685; Mul 1685 676 1315;
  Add 1486 1486 1685; Sub 1060 1060 1486; Add 1384 1384 1060; Sub 1693 1693 1102; Add 1384 1384 1693;
  Mul 1384 3 1384; Mul 1693 347 1092; Add 1384 1384 1693; Add 1613 1613 1384; Mul 1384 674 1144;
  Mul 1693 811 1598; Sub 1384 1384 1693; Mul 1693 813 1663; Mul 1102 680 1091; Add 1693 1693 1102;
  Mul 1102 802 1462; Mul 1060 310 1034; Mul 1486 252 1261; Add 1060 1060 1486].
Definition casadi_f0_810 : list instruction := [
  Mul 1486 327 1593; Mul 1685 339 1193; Add 1486 1486 1685; Mul 1146 318 1146; Mul 1685 701 1180;
  Add 1107 1146 1685; Add 1486 1486 1107; Add 1060 1060 1486; Sub 1083 1083 1060; Mul 1060 676 1083;
  Add 1102 1102 1060; Sub 1693 1693 1102; Add 1384 1384 1693; Sub 1389 1389 1590; Add 1384 1384 1389;
  Mul 1384 4 1384; Mul 1389 698 1135; Add 1384 1384 1389; Add 1613 1613 1384; Mul 1384 674 1215;
  Mul 1389 820 1598; Sub 1384 1384 1389; Mul 1389 822 1663; Mul 1590 680 1652; Add 1389 1389 1590;
  Mul 1590 788 1462; Mul 1693 358 1164; Mul 1102 234 1113; Add 1693 1693 1102; Mul 1102 372 1495;
  Mul 1060 355 1364; Add 1102 1102 1060; Mul 1551 369 1551; Mul 1060 708 1330; Add 1486 1551 1060;
  Add 1102 1102 1486; Add 1693 1693 1102; Sub 1424 1424 1693; Mul 1693 676 1424; Add 1590 1590 1693;
  Sub 1389 1389 1590; Add 1384 1384 1389; Sub 1348 1348 1312; Add 1384 1384 1348; Mul 1384 5 1384;
  Mul 1348 809 1485; Add 1384 1384 1348; Add 1613 1613 1384; Sub 1452 1452 1613; Mul 1613 778 1452;
  Add 1303 1303 1613; Sub 1183 1183 1303; Div 1303 1387 92; Mul 1613 1516 1377; Sub 1303 1303 1613;
  Mul 1613 775 1303; Add 1205 1205 1281; Mul 1281 658 1506; Mul 1604 718 1604; Add 1281 1281 1604;
  Sub 1205 1205 1281; Mul 1281 635 1316; Mul 1217 714 1217; Add 1281 1281 1217; Sub 1205 1205 1281;
  Mul 1577 216 1577; Mul 1281 90 1276; Sub 1577 1577 1281; Mul 1281 566 1359; Mul 1017 215 1017;
  Add 1281 1281 1017; Sub 1577 1577 1281; Add 1205 1205 1577; Mul 1205 0 1205; Mul 1577 818 1288;
  Add 1205 1205 1577; Mul 1577 216 1657; Mul 1281 519 1276; Sub 1577 1577 1281; Sub 1577 1577 1316;
  Mul 1577 156 1577; Mul 1281 545 1577; Mul 1017 684 1162; Add 1281 1281 1017; Mul 1017 216 1187;
  Mul 1217 494 1276; Sub 1017 1017 1217; Mul 1217 215 1194; Mul 1604 497 1359; Add 1217 1217 1604;
  Add 1017 1017 1217; Sub 1017 1402 1017; Mul 1017 156 1017; Mul 1217 504 1017; Mul 1604 660 1133;
  Add 1217 1217 1604; Mul 1604 215 1657; Mul 1384 519 1359; Add 1604 1604 1384; Sub 1604 1604 1506;
  Mul 1604 156 1604; Mul 1384 541 1604; Mul 1348 827 1296; Add 1384 1384 1348; Sub 1217 1217 1384;
  Add 1281 1281 1217; Mul 1431 216 1431; Mul 1217 530 1276; Sub 1431 1431 1217; Mul 1355 215 1355;
  Mul 1217 513 1359; Add 1355 1355 1217; Sub 1431 1431 1355; Mul 1355 827 1187; Mul 1217 494 1604;
  Add 1355 1355 1217; Mul 1217 684 1194; Mul 1384 497 1577; Add 1217 1217 1384; Sub 1355 1355 1217;
  Add 1431 1431 1355; Mul 1355 508 1431; Mul 1217 656 1573; Add 1355 1355 1217; Mul 1420 216 1420;
  Mul 1217 481 1276; Sub 1420 1420 1217; Mul 1217 215 1378; Mul 1384 782 1359; Add 1217 1217 1384;
  Sub 1420 1420 1217; Mul 1217 684 1657; Mul 1384 519 1577; Add 1217 1217 1384; Mul 1187 660 1187;
  Mul 1384 494 1017; Add 1187 1187 1384; Sub 1217 1217 1187; Add 1420 1420 1217; Mul 1217 536 1420;
  Mul 1187 829 1211; Add 1217 1217 1187; Sub 1355 1355 1217; Mul 1378 216 1378; Mul 1217 782 1276;
  Sub 1378 1378 1217; Mul 1438 215 1438; Mul 1217 483 1359; Add 1438 1438 1217].
Definition casadi_f0_811 : list instruction := [
  Sub 1378 1378 1438; Mul 1194 660 1194; Mul 1438 497 1017; Add 1194 1194 1438; Mul 1657 827 1657;
  Mul 1438 519 1604; Add 1657 1657 1438; Sub 1194 1194 1657; Add 1378 1378 1194; Mul 1194 526 1378;
  Mul 1657 830 1533; Add 1194 1194 1657; Sub 1355 1355 1194; Add 1281 1281 1355; Mul 1355 411 1402;
  Mul 1448 716 1448; Add 1355 1355 1448; Add 1451 1451 1453; Sub 1355 1355 1451; Mul 1451 795 1316;
  Mul 1287 714 1287; Add 1451 1451 1287; Sub 1355 1355 1451; Mul 1451 416 1359; Mul 1642 215 1642;
  Add 1451 1451 1642; Sub 1665 1665 1451; Add 1355 1355 1665; Mul 1355 216 1355; Mul 1665 828 1276;
  Sub 1355 1355 1665; Mul 1665 302 1402; Mul 1167 716 1167; Add 1665 1665 1167; Mul 1167 448 1506;
  Mul 1038 718 1038; Add 1167 1167 1038; Sub 1665 1665 1167; Add 1323 1323 1684; Sub 1665 1665 1323;
  Mul 1562 216 1562; Mul 1323 414 1276; Sub 1562 1562 1323; Add 1186 1186 1482; Sub 1562 1562 1186;
  Add 1665 1665 1562; Mul 1665 215 1665; Mul 1562 832 1359; Add 1665 1665 1562; Sub 1562 1355 1665;
  Mul 1206 216 1206; Mul 1186 797 1276; Sub 1206 1206 1186; Add 1676 1676 1565; Sub 1206 1206 1676;
  Mul 1676 540 1206; Mul 1565 835 1246; Sub 1676 1676 1565; Mul 1565 415 1359; Mul 1638 215 1638;
  Add 1565 1565 1638; Sub 1125 1125 1565; Mul 1565 544 1125; Mul 1638 837 1556; Add 1565 1565 1638;
  Add 1676 1676 1565; Sub 1562 1562 1676; Add 1281 1281 1562; Mul 1281 1 1281; Mul 1562 632 1532;
  Add 1281 1281 1562; Add 1205 1205 1281; Mul 1577 678 1577; Mul 1281 684 1602; Add 1577 1577 1281;
  Mul 1604 673 1604; Mul 1281 827 1668; Add 1604 1604 1281; Mul 1017 799 1017; Mul 1281 660 1549;
  Add 1017 1017 1281; Add 1604 1604 1017; Add 1577 1577 1604; Mul 1378 602 1378; Mul 1604 830 1704;
  Add 1378 1378 1604; Mul 1420 670 1420; Mul 1604 829 1360; Add 1420 1420 1604; Mul 1431 671 1431;
  Mul 1604 656 1370; Add 1431 1431 1604; Sub 1420 1420 1431; Add 1378 1378 1420; Add 1577 1577 1378;
  Mul 1206 674 1206; Mul 1378 835 1598; Sub 1206 1206 1378; Mul 1125 680 1125; Mul 1378 837 1663;
  Add 1125 1125 1378; Mul 1450 216 1450; Mul 1378 403 1276; Sub 1450 1450 1378; Mul 1378 293 1359;
  Mul 1584 215 1584; Add 1378 1378 1584; Sub 1450 1450 1378; Mul 1450 676 1450; Mul 1378 839 1462;
  Add 1450 1450 1378; Sub 1125 1125 1450; Add 1206 1206 1125; Sub 1665 1665 1355; Add 1206 1206 1665;
  Add 1577 1577 1206; Mul 1577 2 1577; Mul 1206 834 1020; Add 1577 1577 1206; Add 1205 1205 1577;
  Mul 1577 647 1402; Mul 1315 716 1315; Add 1577 1577 1315; Mul 1315 695 1506; Mul 1570 718 1570;
  Add 1315 1315 1570; Sub 1577 1577 1315; Mul 1315 697 1316; Mul 1510 714 1510; Add 1315 1315 1510;
  Sub 1577 1577 1315; Add 1577 1577 1493; Mul 1577 3 1577; Mul 1493 836 1092; Add 1577 1577 1493;
  Add 1205 1205 1577; Mul 1577 802 1402; Mul 1493 716 1083; Add 1577 1577 1493; Mul 1493 813 1506;
  Mul 1315 718 1091; Add 1493 1493 1315; Sub 1577 1577 1493; Mul 1493 811 1316; Mul 1315 714 1144;
  Add 1493 1493 1315; Sub 1577 1577 1493; Add 1577 1577 1587; Mul 1577 4 1577].
Definition casadi_f0_812 : list instruction := [
  Mul 1587 702 1135; Add 1577 1577 1587; Add 1205 1205 1577; Mul 1577 788 1402; Mul 1587 716 1424;
  Add 1577 1577 1587; Mul 1587 822 1506; Mul 1493 718 1652; Add 1587 1587 1493; Sub 1577 1577 1587;
  Mul 1587 820 1316; Mul 1493 714 1215; Add 1587 1587 1493; Sub 1577 1577 1587; Add 1577 1577 1274;
  Mul 1577 5 1577; Mul 1274 810 1485; Add 1577 1577 1274; Add 1205 1205 1577; Add 1205 1205 1616;
  Mul 1616 769 1205; Sub 1613 1613 1616; Add 1183 1183 1613; Div 1613 1395 92; Mul 1616 1637 1377;
  Sub 1613 1613 1616; Mul 1616 815 1613; Mul 1577 640 1252; Mul 1032 725 1032; Add 1577 1577 1032;
  Mul 1032 662 1662; Mul 1497 731 1497; Add 1032 1032 1497; Add 1166 1166 1270; Add 1032 1032 1166;
  Add 1577 1577 1032; Mul 1032 580 1261; Mul 1196 310 1196; Add 1032 1032 1196; Mul 1196 59 1193;
  Mul 1479 327 1479; Add 1196 1196 1479; Add 1700 1700 1526; Add 1196 1196 1700; Add 1032 1032 1196;
  Sub 1577 1577 1032; Mul 1577 0 1577; Mul 1032 819 1288; Add 1577 1577 1032; Mul 1032 327 1444;
  Mul 1196 515 1193; Add 1032 1032 1196; Mul 1196 318 1156; Mul 1700 489 1180; Add 1196 1196 1700;
  Sub 1032 1032 1196; Sub 1032 1252 1032; Mul 1032 723 1032; Mul 1196 545 1032; Mul 1700 831 1162;
  Add 1196 1196 1700; Mul 1700 310 1156; Mul 1526 489 1261; Add 1700 1700 1526; Mul 1526 327 1457;
  Mul 1479 486 1193; Add 1526 1526 1479; Sub 1700 1700 1526; Sub 1700 1507 1700; Mul 1700 723 1700;
  Mul 1526 504 1700; Mul 1479 840 1133; Add 1526 1526 1479; Mul 1479 318 1457; Mul 1166 486 1180;
  Add 1479 1479 1166; Mul 1166 310 1444; Mul 1270 515 1261; Add 1166 1166 1270; Sub 1479 1479 1166;
  Sub 1479 1662 1479; Mul 1479 723 1479; Mul 1166 541 1479; Mul 1270 842 1296; Add 1166 1166 1270;
  Sub 1526 1526 1166; Add 1196 1196 1526; Mul 1526 842 1457; Mul 1166 486 1479; Add 1526 1526 1166;
  Mul 1166 831 1156; Mul 1270 489 1032; Add 1166 1166 1270; Sub 1526 1526 1166; Mul 1166 310 1173;
  Mul 1270 510 1261; Add 1166 1166 1270; Mul 1270 327 1049; Mul 1497 528 1193; Add 1270 1270 1497;
  Add 1166 1166 1270; Mul 1568 318 1568; Mul 1270 479 1180; Add 1568 1568 1270; Add 1166 1166 1568;
  Sub 1526 1526 1166; Mul 1166 508 1526; Mul 1568 841 1573; Add 1166 1166 1568; Mul 1568 831 1444;
  Mul 1270 515 1032; Add 1568 1568 1270; Mul 1457 840 1457; Mul 1270 486 1700; Add 1457 1457 1270;
  Sub 1568 1568 1457; Mul 1457 310 1254; Mul 1270 606 1261; Add 1457 1457 1270; Mul 1603 327 1603;
  Mul 1270 786 1193; Add 1603 1603 1270; Add 1457 1457 1603; Mul 1049 318 1049; Mul 1603 528 1180;
  Add 1049 1049 1603; Add 1457 1457 1049; Sub 1568 1568 1457; Mul 1457 536 1568; Mul 1049 844 1211;
  Add 1457 1457 1049; Sub 1166 1166 1457; Mul 1156 840 1156; Mul 1457 489 1700; Add 1156 1156 1457;
  Mul 1444 842 1444; Mul 1457 515 1479; Add 1444 1444 1457; Sub 1156 1156 1444; Mul 1432 310 1432;
  Mul 1444 705 1261; Add 1432 1432 1444; Mul 1254 327 1254; Mul 1444 606 1193; Add 1254 1254 1444;
  Add 1432 1432 1254; Mul 1173 318 1173; Mul 1254 510 1180; Add 1173 1173 1254].
Definition casadi_f0_813 : list instruction := [
  Add 1432 1432 1173; Sub 1156 1156 1432; Mul 1432 526 1156; Mul 1173 845 1533; Add 1432 1432 1173;
  Sub 1166 1166 1432; Add 1196 1196 1166; Add 1383 1383 1625; Mul 1625 800 1193; Mul 1018 327 1018;
  Add 1625 1625 1018; Mul 1018 643 1180; Mul 1218 318 1218; Add 1018 1018 1218; Add 1625 1625 1018;
  Add 1383 1383 1625; Mul 1625 540 1383; Mul 1018 843 1246; Sub 1625 1625 1018; Mul 1018 465 1261;
  Mul 1335 310 1335; Add 1018 1018 1335; Add 1580 1580 1141; Mul 1141 665 1180; Mul 1706 318 1706;
  Add 1141 1141 1706; Add 1580 1580 1141; Add 1018 1018 1580; Mul 1580 544 1018; Mul 1141 847 1556;
  Add 1580 1580 1141; Add 1625 1625 1580; Mul 1580 798 1252; Mul 1429 725 1429; Add 1580 1580 1429;
  Add 1351 1351 1643; Mul 1643 339 1507; Mul 1593 727 1593; Add 1643 1643 1593; Add 1351 1351 1643;
  Add 1580 1580 1351; Mul 1351 407 1261; Mul 1412 310 1412; Add 1351 1351 1412; Add 1433 1433 1469;
  Mul 1469 595 1180; Mul 1192 318 1192; Add 1469 1469 1192; Add 1433 1433 1469; Add 1351 1351 1433;
  Sub 1580 1580 1351; Mul 1580 216 1580; Mul 1351 848 1276; Sub 1580 1580 1351; Add 1403 1403 1393;
  Mul 1393 464 1662; Mul 1130 731 1130; Add 1393 1393 1130; Mul 1130 252 1507; Mul 1034 727 1034;
  Add 1130 1130 1034; Add 1393 1393 1130; Add 1403 1403 1393; Add 1118 1118 1139; Mul 1139 361 1193;
  Mul 1606 327 1606; Add 1139 1139 1606; Mul 1606 620 1180; Mul 1311 318 1311; Add 1606 1606 1311;
  Add 1139 1139 1606; Add 1118 1118 1139; Sub 1403 1403 1118; Mul 1403 215 1403; Mul 1118 850 1359;
  Add 1403 1403 1118; Sub 1118 1580 1403; Add 1625 1625 1118; Add 1196 1196 1625; Mul 1196 1 1196;
  Mul 1625 838 1532; Add 1196 1196 1625; Add 1577 1577 1196; Mul 1196 678 1032; Mul 1625 831 1602;
  Add 1196 1196 1625; Mul 1625 673 1479; Mul 1139 842 1668; Add 1625 1625 1139; Mul 1139 799 1700;
  Mul 1606 840 1549; Add 1139 1139 1606; Add 1625 1625 1139; Add 1196 1196 1625; Mul 1625 602 1156;
  Mul 1139 845 1704; Add 1625 1625 1139; Mul 1139 670 1568; Mul 1606 844 1360; Add 1139 1139 1606;
  Mul 1606 671 1526; Mul 1311 841 1370; Add 1606 1606 1311; Sub 1139 1139 1606; Add 1625 1625 1139;
  Add 1196 1196 1625; Mul 1625 785 1261; Mul 1481 310 1481; Add 1625 1625 1481; Mul 1481 306 1193;
  Mul 1488 327 1488; Add 1481 1481 1488; Add 1685 1685 1146; Add 1481 1481 1685; Add 1625 1625 1481;
  Mul 1481 676 1625; Mul 1685 853 1462; Add 1481 1481 1685; Mul 1685 680 1018; Mul 1146 847 1663;
  Add 1685 1685 1146; Sub 1481 1481 1685; Mul 1685 674 1383; Mul 1146 843 1598; Sub 1685 1685 1146;
  Sub 1481 1481 1685; Sub 1403 1403 1580; Add 1481 1481 1403; Add 1196 1196 1481; Mul 1196 2 1196;
  Mul 1481 846 1020; Add 1196 1196 1481; Add 1577 1577 1196; Mul 1032 717 1032; Mul 1196 831 1529;
  Add 1032 1032 1196; Mul 1700 787 1700; Mul 1196 840 1689; Add 1700 1700 1196; Mul 1479 713 1479;
  Mul 1196 842 1161; Add 1479 1479 1196; Sub 1700 1700 1479; Add 1032 1032 1700; Mul 1526 677 1526;
  Mul 1700 841 1142; Add 1526 1526 1700; Mul 1568 712 1568; Mul 1700 844 1517].
Definition casadi_f0_814 : list instruction := [
  Add 1568 1568 1700; Sub 1526 1526 1568; Mul 1156 706 1156; Mul 1568 845 1690; Add 1156 1156 1568;
  Sub 1526 1526 1156; Add 1032 1032 1526; Mul 1383 714 1383; Mul 1526 843 1316; Add 1383 1383 1526;
  Mul 1018 718 1018; Mul 1526 847 1506; Add 1018 1018 1526; Mul 1625 716 1625; Mul 1526 853 1402;
  Add 1625 1625 1526; Sub 1018 1018 1625; Add 1383 1383 1018; Add 1383 1383 1118; Add 1032 1032 1383;
  Mul 1032 3 1032; Mul 1383 854 1092; Add 1032 1032 1383; Add 1577 1577 1032; Mul 1032 811 1252;
  Mul 1144 725 1144; Add 1032 1032 1144; Mul 1144 813 1662; Mul 1091 731 1091; Add 1144 1144 1091;
  Mul 1091 802 1507; Mul 1083 727 1083; Add 1091 1091 1083; Add 1144 1144 1091; Add 1032 1032 1144;
  Mul 1144 807 1261; Mul 1441 310 1441; Add 1144 1144 1441; Mul 1441 690 1193; Mul 1535 327 1535;
  Add 1441 1441 1535; Mul 1535 720 1180; Mul 1332 318 1332; Add 1535 1535 1332; Add 1441 1441 1535;
  Add 1144 1144 1441; Sub 1032 1032 1144; Mul 1032 4 1032; Mul 1144 851 1135; Add 1032 1032 1144;
  Add 1577 1577 1032; Mul 1032 820 1252; Mul 1144 725 1215; Add 1032 1032 1144; Mul 1144 822 1662;
  Mul 1441 731 1652; Add 1144 1144 1441; Mul 1441 788 1507; Mul 1535 727 1424; Add 1441 1441 1535;
  Add 1144 1144 1441; Add 1032 1032 1144; Mul 1144 817 1261; Mul 1441 310 1609; Add 1144 1144 1441;
  Mul 1441 814 1193; Mul 1535 327 1513; Add 1441 1441 1535; Mul 1535 732 1180; Mul 1332 318 1599;
  Add 1535 1535 1332; Add 1441 1441 1535; Add 1144 1144 1441; Sub 1032 1032 1144; Mul 1032 5 1032;
  Mul 1144 852 1485; Add 1032 1032 1144; Add 1577 1577 1032; Sub 1307 1307 1577; Mul 1577 761 1307;
  Add 1616 1616 1577; Add 1183 1183 1616; Div 1616 1373 92; Mul 1577 1619 1377; Sub 1616 1616 1577;
  Mul 1577 833 1616; Mul 1032 645 1106; Mul 1454 736 1454; Add 1032 1032 1454; Mul 1454 666 1555;
  Mul 1087 741 1087; Add 1454 1454 1087; Add 1341 1341 1302; Add 1454 1454 1341; Add 1032 1032 1454;
  Mul 1454 593 1113; Mul 1436 358 1436; Add 1454 1454 1436; Mul 1436 36 1364; Mul 1354 372 1354;
  Add 1436 1436 1354; Add 1082 1082 1343; Add 1436 1436 1082; Add 1454 1454 1436; Sub 1032 1032 1454;
  Mul 1454 0 1032; Mul 1288 849 1288; Add 1454 1454 1288; Mul 1288 372 1442; Mul 1436 438 1364;
  Add 1288 1288 1436; Mul 1436 369 1641; Mul 1082 434 1330; Add 1436 1436 1082; Sub 1288 1288 1436;
  Sub 1288 1106 1288; Mul 1288 430 1288; Mul 1436 545 1288; Mul 1162 856 1162; Add 1436 1436 1162;
  Mul 1162 358 1641; Mul 1082 434 1113; Add 1162 1162 1082; Mul 1082 372 1248; Mul 1343 445 1364;
  Add 1082 1082 1343; Sub 1162 1162 1082; Sub 1162 1278 1162; Mul 1162 430 1162; Mul 1082 504 1162;
  Mul 1133 858 1133; Add 1082 1082 1133; Mul 1133 369 1248; Mul 1343 445 1330; Add 1133 1133 1343;
  Mul 1343 358 1442; Mul 1354 438 1113; Add 1343 1343 1354; Sub 1133 1133 1343; Sub 1133 1555 1133;
  Mul 1133 430 1133; Mul 1343 541 1133; Mul 1296 860 1296; Add 1343 1343 1296; Sub 1082 1082 1343;
  Add 1436 1436 1082; Mul 1082 860 1248; Mul 1343 445 1133; Add 1082 1082 1343].
Definition casadi_f0_815 : list instruction := [
  Mul 1343 856 1641; Mul 1296 434 1288; Add 1343 1343 1296; Sub 1082 1082 1343; Mul 1343 358 1037;
  Mul 1296 443 1113; Add 1343 1343 1296; Mul 1296 372 1324; Mul 1354 426 1364; Add 1296 1296 1354;
  Add 1343 1343 1296; Mul 1143 369 1143; Mul 1296 478 1330; Add 1143 1143 1296; Add 1343 1343 1143;
  Sub 1082 1082 1343; Mul 1343 508 1082; Mul 1573 859 1573; Add 1343 1343 1573; Mul 1573 856 1442;
  Mul 1143 438 1288; Add 1573 1573 1143; Mul 1248 858 1248; Mul 1143 445 1162; Add 1248 1248 1143;
  Sub 1573 1573 1248; Mul 1248 358 1337; Mul 1143 609 1113; Add 1248 1248 1143; Mul 1016 372 1016;
  Mul 1143 604 1364; Add 1016 1016 1143; Add 1248 1248 1016; Mul 1324 369 1324; Mul 1016 426 1330;
  Add 1324 1324 1016; Add 1248 1248 1324; Sub 1573 1573 1248; Mul 1248 536 1573; Mul 1211 862 1211;
  Add 1248 1248 1211; Sub 1343 1343 1248; Mul 1641 858 1641; Mul 1248 434 1162; Add 1641 1641 1248;
  Mul 1442 860 1442; Mul 1248 438 1133; Add 1442 1442 1248; Sub 1641 1641 1442; Mul 1442 13 1113;
  Mul 1572 358 1572; Sub 1442 1442 1572; Mul 1337 372 1337; Mul 1572 609 1364; Add 1337 1337 1572;
  Add 1442 1442 1337; Mul 1037 369 1037; Mul 1337 443 1330; Add 1037 1037 1337; Add 1442 1442 1037;
  Sub 1641 1641 1442; Mul 1442 526 1641; Mul 1533 863 1533; Add 1442 1442 1533; Sub 1343 1343 1442;
  Add 1436 1436 1343; Add 1265 1265 1240; Mul 1240 803 1364; Mul 1430 372 1430; Add 1240 1240 1430;
  Mul 1430 648 1330; Mul 1188 369 1188; Add 1430 1430 1188; Add 1240 1240 1430; Add 1265 1265 1240;
  Mul 1240 540 1265; Mul 1246 861 1246; Sub 1240 1240 1246; Mul 1246 394 1113; Mul 1574 358 1574;
  Add 1246 1246 1574; Add 1251 1251 1094; Mul 1094 669 1330; Mul 1163 369 1163; Add 1094 1094 1163;
  Add 1251 1251 1094; Add 1246 1246 1251; Mul 1251 544 1246; Mul 1556 865 1556; Add 1251 1251 1556;
  Add 1240 1240 1251; Mul 1251 801 1106; Mul 1427 736 1427; Add 1251 1251 1427; Add 1478 1478 1077;
  Mul 1077 355 1278; Mul 1495 738 1495; Add 1077 1077 1495; Add 1478 1478 1077; Add 1251 1251 1478;
  Mul 1478 359 1113; Mul 1673 358 1673; Add 1478 1478 1673; Add 1691 1691 1483; Mul 1483 608 1330;
  Mul 1169 369 1169; Add 1483 1483 1169; Add 1691 1691 1483; Add 1478 1478 1691; Sub 1251 1251 1478;
  Mul 1478 216 1251; Mul 1276 866 1276; Sub 1478 1478 1276; Add 1468 1468 1581; Mul 1581 457 1555;
  Mul 1340 741 1340; Add 1581 1581 1340; Mul 1340 234 1278; Mul 1164 738 1164; Add 1340 1340 1164;
  Add 1581 1581 1340; Add 1468 1468 1581; Add 1285 1285 1413; Mul 1413 352 1364; Mul 1190 372 1190;
  Add 1413 1413 1190; Mul 1190 622 1330; Mul 1235 369 1235; Add 1190 1190 1235; Add 1413 1413 1190;
  Add 1285 1285 1413; Sub 1468 1468 1285; Mul 1285 215 1468; Mul 1359 868 1359; Add 1285 1285 1359;
  Sub 1359 1478 1285; Add 1240 1240 1359; Add 1436 1436 1240; Mul 1436 1 1436; Mul 1532 857 1532;
  Add 1436 1436 1532; Add 1454 1454 1436; Mul 1436 678 1288; Mul 1602 856 1602; Add 1436 1436 1602;
  Mul 1602 673 1133; Mul 1668 860 1668; Add 1602 1602 1668; Mul 1668 799 1162].
Definition casadi_f0_816 : list instruction := [
  Mul 1549 858 1549; Add 1668 1668 1549; Add 1602 1602 1668; Add 1436 1436 1602; Mul 1602 602 1641;
  Mul 1704 863 1704; Add 1602 1602 1704; Mul 1704 670 1573; Mul 1360 862 1360; Add 1704 1704 1360;
  Mul 1360 671 1082; Mul 1370 859 1370; Add 1360 1360 1370; Sub 1704 1704 1360; Add 1602 1602 1704;
  Add 1436 1436 1602; Mul 1602 245 1113; Mul 1401 358 1401; Add 1602 1602 1401; Mul 1401 356 1364;
  Mul 1300 372 1300; Add 1401 1401 1300; Add 1060 1060 1551; Add 1401 1401 1060; Add 1602 1602 1401;
  Mul 1401 676 1602; Mul 1462 871 1462; Add 1401 1401 1462; Mul 1462 680 1246; Mul 1663 865 1663;
  Add 1462 1462 1663; Sub 1401 1401 1462; Mul 1462 674 1265; Mul 1598 861 1598; Sub 1462 1462 1598;
  Sub 1401 1401 1462; Sub 1285 1285 1478; Add 1401 1401 1285; Add 1436 1436 1401; Mul 1436 2 1436;
  Mul 1020 864 1020; Add 1436 1436 1020; Add 1454 1454 1436; Mul 1436 717 1288; Mul 1529 856 1529;
  Add 1436 1436 1529; Mul 1529 787 1162; Mul 1689 858 1689; Add 1529 1529 1689; Mul 1689 713 1133;
  Mul 1161 860 1161; Add 1689 1689 1161; Sub 1529 1529 1689; Add 1436 1436 1529; Mul 1529 677 1082;
  Mul 1142 859 1142; Add 1529 1529 1142; Mul 1142 712 1573; Mul 1517 862 1517; Add 1142 1142 1517;
  Sub 1529 1529 1142; Mul 1142 706 1641; Mul 1690 863 1690; Add 1142 1142 1690; Sub 1529 1529 1142;
  Add 1436 1436 1529; Mul 1529 714 1265; Mul 1316 861 1316; Add 1529 1529 1316; Mul 1316 718 1246;
  Mul 1506 865 1506; Add 1316 1316 1506; Mul 1506 716 1602; Mul 1402 871 1402; Add 1506 1506 1402;
  Sub 1316 1316 1506; Add 1529 1529 1316; Add 1529 1529 1359; Add 1436 1436 1529; Mul 1436 3 1436;
  Mul 1092 872 1092; Add 1436 1436 1092; Add 1454 1454 1436; Mul 1288 729 1288; Mul 1109 856 1109;
  Add 1288 1288 1109; Mul 1133 724 1133; Mul 1175 860 1175; Add 1133 1133 1175; Mul 1162 688 1162;
  Mul 1295 858 1295; Add 1162 1162 1295; Add 1133 1133 1162; Add 1288 1288 1133; Mul 1641 715 1641;
  Mul 1317 863 1317; Add 1641 1641 1317; Mul 1573 721 1573; Mul 1368 862 1368; Add 1573 1573 1368;
  Mul 1082 722 1082; Mul 1114 859 1114; Add 1082 1082 1114; Add 1573 1573 1082; Add 1641 1641 1573;
  Add 1288 1288 1641; Mul 1265 725 1265; Mul 1252 861 1252; Add 1265 1265 1252; Mul 1246 731 1246;
  Mul 1662 865 1662; Add 1246 1246 1662; Mul 1602 727 1602; Mul 1507 871 1507; Add 1602 1602 1507;
  Add 1246 1246 1602; Add 1265 1265 1246; Mul 1468 310 1468; Mul 1261 868 1261; Add 1468 1468 1261;
  Mul 1251 327 1251; Mul 1193 866 1193; Add 1251 1251 1193; Mul 1032 318 1032; Mul 1180 849 1180;
  Add 1032 1032 1180; Add 1251 1251 1032; Add 1468 1468 1251; Add 1265 1265 1468; Sub 1288 1288 1265;
  Mul 1288 4 1288; Mul 1135 869 1135; Add 1288 1288 1135; Add 1454 1454 1288; Mul 1106 820 1106;
  Mul 1215 736 1215; Add 1106 1106 1215; Mul 1555 822 1555; Mul 1652 741 1652; Add 1555 1555 1652;
  Mul 1278 788 1278; Mul 1424 738 1424; Add 1278 1278 1424; Add 1555 1555 1278; Add 1106 1106 1555;
  Mul 1113 817 1113; Mul 1609 358 1609; Add 1113 1113 1609; Mul 1364 814 1364].
Definition casadi_f0_817 : list instruction := [
  Mul 1513 372 1513; Add 1364 1364 1513; Mul 1330 732 1330; Mul 1599 369 1599; Add 1330 1330 1599;
  Add 1364 1364 1330; Add 1113 1113 1364; Sub 1106 1106 1113; Mul 1106 5 1106; Mul 1485 870 1485;
  Add 1106 1106 1485; Add 1454 1454 1106; Sub 1290 1290 1454; Mul 1454 754 1290; Add 1577 1577 1454;
  Add 1183 1183 1577; Mul 1577 210 1373; Mul 1454 200 1115; Add 1577 1577 1454; Mul 1445 19 1445;
  Mul 1454 196 1504; Sub 1445 1445 1454; Mul 1454 189 1408; Mul 1592 35 1592; Sub 1454 1454 1592;
  Sub 1445 1445 1454; Mul 1544 55 1544; Mul 1208 62 1208; Add 1544 1544 1208; Add 1445 1445 1544;
  Mul 1635 86 1635; Mul 1531 91 1531; Add 1635 1635 1531; Add 1635 1445 1635; Mul 1128 102 1128;
  Sub 1128 1635 1128; Mul 1531 777 1128; Mul 1544 209 1476; Add 1531 1531 1544; Add 1577 1577 1531;
  Mul 1531 778 1635; Mul 1544 867 1508; Add 1531 1531 1544; Add 1577 1577 1531; Mul 1531 769 1445;
  Mul 1544 855 1303; Add 1531 1531 1544; Add 1577 1577 1531; Mul 1531 761 1117; Mul 1544 201 1613;
  Add 1531 1531 1544; Sub 1577 1577 1531; Mul 1531 873 1616; Add 1577 1577 1531; Mul 1531 1006 1577;
  Mul 1544 210 1577; Mul 1208 756 1115; Add 1544 1544 1208; Sub 1373 1373 1544; Mul 1544 881 1373;
  Mul 1208 210 1695; Mul 1454 143 1115; Add 1208 1208 1454; Sub 1269 1269 1201; Sub 1028 1028 1582;
  Mul 1028 37 1028; Add 1269 1269 1028; Sub 1280 1280 1222; Mul 1280 80 1280; Add 1280 1269 1280;
  Sub 1344 1344 1298; Mul 1344 100 1344; Add 1344 1280 1344; Mul 1120 1064 1120; Mul 1309 1061 1309;
  Add 1120 1120 1309; Mul 1120 141 1120; Add 1344 1344 1120; Mul 1120 777 1344; Mul 1309 876 1476;
  Add 1120 1120 1309; Add 1208 1208 1120; Mul 1385 151 1385; Mul 1352 103 1352; Add 1385 1385 1352;
  Mul 1266 148 1266; Mul 1464 105 1464; Add 1266 1266 1464; Sub 1385 1385 1266; Sub 1385 1385 1280;
  Mul 1498 102 1498; Sub 1498 1385 1498; Mul 1280 778 1498; Mul 1266 153 1508; Add 1280 1280 1266;
  Sub 1208 1208 1280; Mul 1356 1057 1356; Mul 1321 1065 1321; Sub 1356 1356 1321; Mul 1356 156 1356;
  Add 1269 1269 1356; Mul 1025 86 1025; Mul 1221 91 1221; Sub 1025 1025 1221; Add 1025 1269 1025;
  Mul 1202 102 1202; Sub 1202 1025 1202; Mul 1221 769 1202; Mul 1356 171 1303; Add 1221 1221 1356;
  Add 1208 1208 1221; Mul 1408 180 1408; Mul 1127 35 1127; Add 1408 1408 1127; Mul 1374 19 1374;
  Mul 1504 182 1504; Sub 1374 1374 1504; Sub 1408 1408 1374; Mul 1314 55 1314; Add 1408 1408 1314;
  Mul 1561 86 1561; Mul 1076 91 1076; Add 1561 1561 1076; Add 1561 1408 1561; Mul 1519 102 1519;
  Sub 1519 1561 1519; Mul 1076 761 1519; Mul 1314 188 1613; Add 1076 1076 1314; Add 1208 1208 1076;
  Mul 1076 754 1128; Mul 1314 209 1616; Add 1076 1076 1314; Add 1208 1208 1076; Mul 1076 210 1208;
  Mul 1314 875 1115; Add 1076 1076 1314; Sub 1695 1695 1076; Div 1076 1695 65; Mul 1695 89 1695;
  Mul 1314 777 1208; Mul 1374 875 1476; Add 1314 1314 1374; Sub 1344 1344 1314; Mul 1314 58 1344;
  Add 1695 1695 1314; Mul 1314 778 1208; Mul 1374 875 1508; Add 1314 1314 1374].
Definition casadi_f0_818 : list instruction := [
  Add 1314 1498 1314; Mul 1374 45 1314; Add 1695 1695 1374; Mul 1374 769 1208; Mul 1504 875 1303;
  Add 1374 1374 1504; Sub 1374 1202 1374; Mul 1504 22 1374; Add 1695 1695 1504; Mul 1504 761 1208;
  Mul 1127 875 1613; Add 1504 1504 1127; Sub 1504 1519 1504; Mul 1127 879 1504; Add 1695 1695 1127;
  Mul 1127 754 1208; Mul 1221 875 1616; Add 1127 1127 1221; Sub 1127 1128 1127; Mul 1221 880 1127;
  Add 1695 1695 1221; Div 1695 1695 1045; Mul 1221 1078 1695; Sub 1076 1076 1221; Mul 1221 874 1076;
  Add 1544 1544 1221; Mul 1221 777 1577; Mul 1356 756 1476; Add 1221 1221 1356; Sub 1128 1128 1221;
  Mul 1221 884 1128; Div 1344 1344 65; Mul 1356 1029 1695; Sub 1344 1344 1356; Mul 1356 883 1344;
  Add 1221 1221 1356; Add 1544 1544 1221; Mul 1221 778 1577; Mul 1356 756 1508; Add 1221 1221 1356;
  Sub 1221 1221 1635; Mul 1356 886 1221; Div 1314 1314 65; Mul 1321 1063 1695; Sub 1314 1314 1321;
  Mul 1321 885 1314; Add 1356 1356 1321; Add 1544 1544 1356; Mul 1356 769 1577; Mul 1321 756 1303;
  Add 1356 1356 1321; Sub 1356 1445 1356; Mul 1321 888 1356; Div 1374 1374 65; Mul 1280 1040 1695;
  Sub 1374 1374 1280; Mul 1280 887 1374; Add 1321 1321 1280; Add 1544 1544 1321; Mul 1321 761 1577;
  Mul 1280 756 1613; Add 1321 1321 1280; Add 1321 1117 1321; Mul 1280 890 1321; Div 1504 1504 65;
  Mul 1266 1027 1695; Sub 1504 1504 1266; Mul 1266 889 1504; Add 1280 1280 1266; Sub 1544 1544 1280;
  Div 1127 1127 65; Mul 1280 1046 1695; Sub 1127 1127 1280; Mul 1280 891 1127; Mul 1577 754 1577;
  Mul 1266 756 1616; Add 1577 1577 1266; Mul 1266 892 1577; Sub 1280 1280 1266; Add 1544 1544 1280;
  Mul 1280 881 1544; Mul 1266 882 1076; Add 1280 1280 1266; Sub 1373 1373 1280; Mul 1280 884 1544;
  Mul 1266 882 1344; Add 1280 1280 1266; Sub 1128 1128 1280; Mul 1280 910 1128; Mul 1266 777 1498;
  Mul 1464 153 1476; Add 1266 1266 1464; Mul 1464 210 1600; Mul 1352 154 1115; Add 1464 1464 1352;
  Sub 1266 1266 1464; Mul 1464 778 1385; Mul 1352 106 1508; Add 1464 1464 1352; Add 1266 1266 1464;
  Mul 1464 769 1025; Mul 1352 877 1303; Add 1464 1464 1352; Sub 1266 1266 1464; Mul 1464 761 1561;
  Mul 1352 94 1613; Add 1464 1464 1352; Sub 1266 1266 1464; Mul 1464 754 1635; Mul 1352 867 1616;
  Add 1464 1464 1352; Sub 1266 1266 1464; Mul 1464 777 1266; Mul 1352 895 1476; Add 1464 1464 1352;
  Sub 1498 1498 1464; Mul 1464 884 1498; Mul 1352 896 1344; Add 1464 1464 1352; Mul 1352 210 1266;
  Mul 1120 895 1115; Add 1352 1352 1120; Add 1600 1600 1352; Mul 1352 881 1600; Mul 1120 898 1076;
  Add 1352 1352 1120; Sub 1464 1464 1352; Mul 1352 778 1266; Mul 1120 895 1508; Add 1352 1352 1120;
  Sub 1352 1352 1385; Mul 1385 886 1352; Mul 1120 899 1314; Add 1385 1385 1120; Add 1464 1464 1385;
  Mul 1385 769 1266; Mul 1120 895 1303; Add 1385 1385 1120; Add 1385 1025 1385; Mul 1120 888 1385;
  Mul 1309 900 1374; Add 1120 1120 1309; Sub 1464 1464 1120; Mul 1120 761 1266; Mul 1309 895 1613;
  Add 1120 1120 1309; Add 1120 1561 1120; Mul 1309 890 1120; Mul 1298 901 1504].
Definition casadi_f0_819 : list instruction := [
  Add 1309 1309 1298; Sub 1464 1464 1309; Mul 1309 754 1266; Mul 1298 895 1616; Add 1309 1309 1298;
  Add 1635 1635 1309; Mul 1309 892 1635; Mul 1298 902 1127; Add 1309 1309 1298; Sub 1464 1464 1309;
  Mul 1309 884 1464; Mul 1298 897 1344; Add 1309 1309 1298; Sub 1498 1498 1309; Div 1309 1498 905;
  Mul 1298 881 1464; Mul 1222 897 1076; Add 1298 1298 1222; Add 1600 1600 1298; Mul 1298 904 1600;
  Mul 1498 903 1498; Add 1298 1298 1498; Mul 1498 886 1464; Mul 1222 897 1314; Add 1498 1498 1222;
  Sub 1352 1352 1498; Mul 1498 906 1352; Add 1298 1298 1498; Mul 1498 888 1464; Mul 1222 897 1374;
  Add 1498 1498 1222; Add 1385 1385 1498; Mul 1498 907 1385; Add 1298 1298 1498; Mul 1498 890 1464;
  Mul 1222 897 1504; Add 1498 1498 1222; Add 1120 1120 1498; Mul 1498 908 1120; Add 1298 1298 1498;
  Mul 1498 892 1464; Mul 1222 897 1127; Add 1498 1498 1222; Add 1635 1635 1498; Mul 1498 909 1635;
  Add 1298 1298 1498; Div 1298 1298 1067; Mul 1498 1214 1298; Sub 1309 1309 1498; Mul 1498 894 1309;
  Add 1280 1280 1498; Mul 1498 912 1373; Div 1600 1600 905; Mul 1222 1614 1298; Sub 1600 1600 1222;
  Mul 1222 893 1600; Add 1498 1498 1222; Sub 1280 1280 1498; Mul 1498 886 1544; Mul 1222 882 1314;
  Add 1498 1498 1222; Sub 1221 1221 1498; Mul 1498 914 1221; Div 1352 1352 905; Mul 1222 1273 1298;
  Sub 1352 1352 1222; Mul 1222 913 1352; Add 1498 1498 1222; Add 1280 1280 1498; Mul 1498 888 1544;
  Mul 1222 882 1374; Add 1498 1498 1222; Sub 1356 1356 1498; Mul 1498 916 1356; Div 1385 1385 905;
  Mul 1222 1260 1298; Sub 1385 1385 1222; Mul 1222 915 1385; Add 1498 1498 1222; Sub 1280 1280 1498;
  Mul 1498 890 1544; Mul 1222 882 1504; Add 1498 1498 1222; Add 1321 1321 1498; Mul 1498 918 1321;
  Div 1120 1120 905; Mul 1222 1249 1298; Sub 1120 1120 1222; Mul 1222 917 1120; Add 1498 1498 1222;
  Add 1280 1280 1498; Div 1635 1635 905; Mul 1498 1569 1298; Sub 1635 1635 1498; Mul 1498 919 1635;
  Mul 1222 892 1544; Mul 1028 882 1127; Add 1222 1222 1028; Add 1577 1577 1222; Mul 1222 920 1577;
  Sub 1498 1498 1222; Sub 1280 1280 1498; Mul 1498 912 1280; Mul 1222 911 1600; Add 1498 1498 1222;
  Add 1373 1373 1498; Mul 1498 944 1373; Mul 1222 210 1387; Mul 1028 168 1115; Add 1222 1222 1028;
  Mul 1028 777 1202; Mul 1582 171 1476; Add 1028 1028 1582; Add 1222 1222 1028; Mul 1028 778 1025;
  Mul 1582 877 1508; Add 1028 1028 1582; Add 1222 1222 1028; Mul 1028 769 1269; Mul 1582 878 1303;
  Add 1028 1028 1582; Add 1222 1222 1028; Mul 1028 761 1408; Mul 1582 98 1613; Add 1028 1028 1582;
  Add 1222 1222 1028; Mul 1028 754 1445; Mul 1582 855 1616; Add 1028 1028 1582; Add 1222 1222 1028;
  Mul 1028 210 1222; Mul 1582 922 1115; Add 1028 1028 1582; Sub 1387 1387 1028; Mul 1028 881 1387;
  Mul 1582 923 1076; Add 1028 1028 1582; Mul 1582 777 1222; Mul 1201 922 1476; Add 1582 1582 1201;
  Sub 1202 1202 1582; Mul 1582 884 1202; Mul 1201 925 1344; Add 1582 1582 1201; Add 1028 1028 1582;
  Mul 1582 778 1222; Mul 1201 922 1508; Add 1582 1582 1201; Sub 1582 1582 1025].
Definition casadi_f0_820 : list instruction := [
  Mul 1025 886 1582; Mul 1201 926 1314; Add 1025 1025 1201; Add 1028 1028 1025; Mul 1025 769 1222;
  Mul 1201 922 1303; Add 1025 1025 1201; Sub 1269 1269 1025; Mul 1025 888 1269; Mul 1201 927 1374;
  Add 1025 1025 1201; Add 1028 1028 1025; Mul 1025 761 1222; Mul 1201 922 1613; Add 1025 1025 1201;
  Sub 1025 1408 1025; Mul 1201 890 1025; Mul 1454 928 1504; Add 1201 1201 1454; Add 1028 1028 1201;
  Mul 1201 754 1222; Mul 1454 922 1616; Add 1201 1201 1454; Sub 1445 1445 1201; Mul 1201 892 1445;
  Mul 1454 929 1127; Add 1201 1201 1454; Add 1028 1028 1201; Mul 1201 881 1028; Mul 1454 924 1076;
  Add 1201 1201 1454; Sub 1387 1387 1201; Mul 1201 884 1028; Mul 1454 924 1344; Add 1201 1201 1454;
  Sub 1202 1202 1201; Mul 1201 910 1202; Mul 1454 931 1309; Add 1201 1201 1454; Mul 1454 912 1387;
  Mul 1592 930 1600; Add 1454 1454 1592; Sub 1201 1201 1454; Mul 1454 886 1028; Mul 1592 924 1314;
  Add 1454 1454 1592; Sub 1582 1582 1454; Mul 1454 914 1582; Mul 1592 933 1352; Add 1454 1454 1592;
  Add 1201 1201 1454; Mul 1454 888 1028; Mul 1592 924 1374; Add 1454 1454 1592; Sub 1269 1269 1454;
  Mul 1454 916 1269; Mul 1592 934 1385; Add 1454 1454 1592; Sub 1201 1201 1454; Mul 1454 890 1028;
  Mul 1592 924 1504; Add 1454 1454 1592; Sub 1025 1025 1454; Mul 1454 918 1025; Mul 1592 935 1120;
  Add 1454 1454 1592; Sub 1201 1201 1454; Mul 1454 892 1028; Mul 1592 924 1127; Add 1454 1454 1592;
  Sub 1445 1445 1454; Mul 1454 920 1445; Mul 1592 936 1635; Add 1454 1454 1592; Sub 1201 1201 1454;
  Mul 1454 912 1201; Mul 1592 932 1600; Add 1454 1454 1592; Add 1387 1387 1454; Div 1454 1387 938;
  Mul 1387 937 1387; Mul 1592 910 1201; Mul 1106 932 1309; Add 1592 1592 1106; Sub 1202 1202 1592;
  Mul 1592 939 1202; Add 1387 1387 1592; Mul 1592 914 1201; Mul 1106 932 1352; Add 1592 1592 1106;
  Sub 1582 1582 1592; Mul 1592 940 1582; Add 1387 1387 1592; Mul 1592 916 1201; Mul 1106 932 1385;
  Add 1592 1592 1106; Add 1269 1269 1592; Mul 1592 941 1269; Add 1387 1387 1592; Mul 1592 918 1201;
  Mul 1106 932 1120; Add 1592 1592 1106; Add 1025 1025 1592; Mul 1592 942 1025; Add 1387 1387 1592;
  Mul 1592 920 1201; Mul 1106 932 1635; Add 1592 1592 1106; Add 1445 1445 1592; Mul 1592 943 1445;
  Add 1387 1387 1592; Div 1387 1387 1615; Mul 1592 1446 1387; Sub 1454 1454 1592; Mul 1592 921 1454;
  Add 1498 1498 1592; Mul 1592 910 1280; Mul 1106 911 1309; Add 1592 1592 1106; Sub 1128 1128 1592;
  Mul 1592 947 1128; Div 1202 1202 938; Mul 1106 1184 1387; Sub 1202 1202 1106; Mul 1106 946 1202;
  Add 1592 1592 1106; Add 1498 1498 1592; Mul 1592 914 1280; Mul 1106 911 1352; Add 1592 1592 1106;
  Sub 1221 1221 1592; Mul 1592 949 1221; Div 1582 1582 938; Mul 1106 1160 1387; Sub 1582 1582 1106;
  Mul 1106 948 1582; Add 1592 1592 1106; Add 1498 1498 1592; Mul 1592 916 1280; Mul 1106 911 1385;
  Add 1592 1592 1106; Add 1356 1356 1592; Mul 1592 951 1356; Div 1269 1269 938; Mul 1106 1328 1387;
  Sub 1269 1269 1106; Mul 1106 950 1269; Add 1592 1592 1106; Add 1498 1498 1592].
Definition casadi_f0_821 : list instruction := [
  Mul 1592 918 1280; Mul 1106 911 1120; Add 1592 1592 1106; Sub 1592 1592 1321; Mul 1321 953 1592;
  Div 1025 1025 938; Mul 1106 1155 1387; Sub 1025 1025 1106; Mul 1106 952 1025; Add 1321 1321 1106;
  Add 1498 1498 1321; Mul 1321 920 1280; Mul 1106 911 1635; Add 1321 1321 1106; Sub 1321 1321 1577;
  Mul 1577 955 1321; Div 1445 1445 938; Mul 1106 1220 1387; Sub 1445 1445 1106; Mul 1106 954 1445;
  Add 1577 1577 1106; Add 1498 1498 1577; Mul 1577 944 1498; Mul 1106 945 1454; Add 1577 1577 1106;
  Sub 1373 1373 1577; Mul 1577 986 1373; Mul 1106 210 1395; Mul 1485 175 1115; Add 1106 1106 1485;
  Mul 1485 777 1519; Mul 1113 188 1476; Add 1485 1485 1113; Add 1106 1106 1485; Mul 1485 778 1561;
  Mul 1113 94 1508; Add 1485 1485 1113; Add 1106 1106 1485; Mul 1485 769 1408; Mul 1113 98 1303;
  Add 1485 1485 1113; Add 1106 1106 1485; Mul 1485 761 1301; Mul 1113 172 1613; Add 1485 1485 1113;
  Sub 1106 1106 1485; Mul 1485 754 1117; Mul 1113 201 1616; Add 1485 1485 1113; Sub 1106 1106 1485;
  Mul 1485 210 1106; Mul 1115 957 1115; Add 1485 1485 1115; Sub 1395 1395 1485; Mul 1485 881 1395;
  Mul 1115 958 1076; Add 1485 1485 1115; Mul 1115 777 1106; Mul 1476 957 1476; Add 1115 1115 1476;
  Sub 1519 1519 1115; Mul 1115 884 1519; Mul 1476 960 1344; Add 1115 1115 1476; Add 1485 1485 1115;
  Mul 1115 778 1106; Mul 1508 957 1508; Add 1115 1115 1508; Sub 1115 1115 1561; Mul 1561 886 1115;
  Mul 1508 961 1314; Add 1561 1561 1508; Add 1485 1485 1561; Mul 1561 769 1106; Mul 1303 957 1303;
  Add 1561 1561 1303; Sub 1408 1408 1561; Mul 1561 888 1408; Mul 1303 962 1374; Add 1561 1561 1303;
  Add 1485 1485 1561; Mul 1561 761 1106; Mul 1613 957 1613; Add 1561 1561 1613; Add 1301 1301 1561;
  Mul 1561 890 1301; Mul 1613 963 1504; Add 1561 1561 1613; Sub 1485 1485 1561; Mul 1561 754 1106;
  Mul 1616 957 1616; Add 1561 1561 1616; Add 1117 1117 1561; Mul 1561 892 1117; Mul 1616 964 1127;
  Add 1561 1561 1616; Sub 1485 1485 1561; Mul 1561 881 1485; Mul 1616 959 1076; Add 1561 1561 1616;
  Sub 1395 1395 1561; Mul 1561 884 1485; Mul 1616 959 1344; Add 1561 1561 1616; Sub 1519 1519 1561;
  Mul 1561 910 1519; Mul 1616 966 1309; Add 1561 1561 1616; Mul 1616 912 1395; Mul 1613 965 1600;
  Add 1616 1616 1613; Sub 1561 1561 1616; Mul 1616 886 1485; Mul 1613 959 1314; Add 1616 1616 1613;
  Sub 1115 1115 1616; Mul 1616 914 1115; Mul 1613 968 1352; Add 1616 1616 1613; Add 1561 1561 1616;
  Mul 1616 888 1485; Mul 1613 959 1374; Add 1616 1616 1613; Sub 1408 1408 1616; Mul 1616 916 1408;
  Mul 1613 969 1385; Add 1616 1616 1613; Sub 1561 1561 1616; Mul 1616 890 1485; Mul 1613 959 1504;
  Add 1616 1616 1613; Add 1301 1301 1616; Mul 1616 918 1301; Mul 1613 970 1120; Add 1616 1616 1613;
  Add 1561 1561 1616; Mul 1616 892 1485; Mul 1613 959 1127; Add 1616 1616 1613; Add 1117 1117 1616;
  Mul 1616 920 1117; Mul 1613 971 1635; Add 1616 1616 1613; Add 1561 1561 1616; Mul 1616 912 1561;
  Mul 1613 967 1600; Add 1616 1616 1613; Add 1395 1395 1616; Mul 1616 944 1395].
Definition casadi_f0_822 : list instruction := [
  Mul 1613 972 1454; Add 1616 1616 1613; Mul 1613 910 1561; Mul 1303 967 1309; Add 1613 1613 1303;
  Sub 1519 1519 1613; Mul 1613 947 1519; Mul 1303 974 1202; Add 1613 1613 1303; Add 1616 1616 1613;
  Mul 1613 914 1561; Mul 1303 967 1352; Add 1613 1613 1303; Sub 1115 1115 1613; Mul 1613 949 1115;
  Mul 1303 975 1582; Add 1613 1613 1303; Add 1616 1616 1613; Mul 1613 916 1561; Mul 1303 967 1385;
  Add 1613 1613 1303; Add 1408 1408 1613; Mul 1613 951 1408; Mul 1303 976 1269; Add 1613 1613 1303;
  Add 1616 1616 1613; Mul 1613 918 1561; Mul 1303 967 1120; Add 1613 1613 1303; Sub 1613 1613 1301;
  Mul 1301 953 1613; Mul 1303 977 1025; Add 1301 1301 1303; Add 1616 1616 1301; Mul 1301 920 1561;
  Mul 1303 967 1635; Add 1301 1301 1303; Sub 1301 1301 1117; Mul 1117 955 1301; Mul 1303 978 1445;
  Add 1117 1117 1303; Add 1616 1616 1117; Mul 1117 944 1616; Mul 1303 973 1454; Add 1117 1117 1303;
  Sub 1395 1395 1117; Div 1117 1395 980; Mul 1395 979 1395; Mul 1303 947 1616; Mul 1508 973 1202;
  Add 1303 1303 1508; Sub 1519 1519 1303; Mul 1303 981 1519; Add 1395 1395 1303; Mul 1303 949 1616;
  Mul 1508 973 1582; Add 1303 1303 1508; Sub 1115 1115 1303; Mul 1303 982 1115; Add 1395 1395 1303;
  Mul 1303 951 1616; Mul 1508 973 1269; Add 1303 1303 1508; Sub 1408 1408 1303; Mul 1303 983 1408;
  Add 1395 1395 1303; Mul 1303 953 1616; Mul 1508 973 1025; Add 1303 1303 1508; Sub 1613 1613 1303;
  Mul 1303 984 1613; Add 1395 1395 1303; Mul 1303 955 1616; Mul 1508 973 1445; Add 1303 1303 1508;
  Sub 1301 1301 1303; Mul 1303 985 1301; Add 1395 1395 1303; Div 1395 1395 1630; Mul 1303 1629 1395;
  Sub 1117 1117 1303; Mul 1303 956 1117; Add 1577 1577 1303; Mul 1303 947 1498; Mul 1508 945 1202;
  Add 1303 1303 1508; Sub 1128 1128 1303; Mul 1303 989 1128; Div 1519 1519 980; Mul 1508 1262 1395;
  Sub 1519 1519 1508; Mul 1508 988 1519; Add 1303 1303 1508; Add 1577 1577 1303; Mul 1303 949 1498;
  Mul 1508 945 1582; Add 1303 1303 1508; Sub 1221 1221 1303; Mul 1303 991 1221; Div 1115 1115 980;
  Mul 1508 1306 1395; Sub 1115 1115 1508; Mul 1508 990 1115; Add 1303 1303 1508; Add 1577 1577 1303;
  Mul 1303 951 1498; Mul 1508 945 1269; Add 1303 1303 1508; Sub 1356 1356 1303; Mul 1303 993 1356;
  Div 1408 1408 980; Mul 1508 1626 1395; Sub 1408 1408 1508; Mul 1508 992 1408; Add 1303 1303 1508;
  Add 1577 1577 1303; Mul 1303 953 1498; Mul 1508 945 1025; Add 1303 1303 1508; Sub 1592 1592 1303;
  Mul 1303 995 1592; Div 1613 1613 980; Mul 1508 1530 1395; Sub 1613 1613 1508; Mul 1508 994 1613;
  Add 1303 1303 1508; Add 1577 1577 1303; Mul 1303 955 1498; Mul 1508 945 1445; Add 1303 1303 1508;
  Sub 1321 1321 1303; Mul 1303 997 1321; Div 1301 1301 980; Mul 1508 1472 1395; Sub 1301 1301 1508;
  Mul 1508 996 1301; Add 1303 1303 1508; Add 1577 1577 1303; Mul 1303 986 1577; Mul 1508 987 1117;
  Add 1303 1303 1508; Sub 1373 1373 1303; Div 1303 1373 999; Mul 1373 998 1373; Mul 1508 989 1577;
  Mul 1476 987 1519; Add 1508 1508 1476; Sub 1128 1128 1508; Mul 1508 1000 1128].
Definition casadi_f0_823 : list instruction := [
  Add 1373 1373 1508; Mul 1508 991 1577; Mul 1476 987 1115; Add 1508 1508 1476; Sub 1221 1221 1508;
  Mul 1508 1001 1221; Add 1373 1373 1508; Mul 1508 993 1577; Mul 1476 987 1408; Add 1508 1508 1476;
  Sub 1356 1356 1508; Mul 1508 1002 1356; Add 1373 1373 1508; Mul 1508 995 1577; Mul 1476 987 1613;
  Add 1508 1508 1476; Sub 1592 1592 1508; Mul 1508 1003 1592; Add 1373 1373 1508; Mul 1508 997 1577;
  Mul 1476 987 1301; Add 1508 1508 1476; Sub 1321 1321 1508; Mul 1508 1004 1321; Add 1373 1373 1508;
  Div 1373 1373 1095; Mul 1508 1596 1373; Sub 1303 1303 1508; Mul 1303 211 1303; Mul 1508 1005 1701;
  Sub 1303 1303 1508; Div 1128 1128 999; Mul 1508 1331 1373; Sub 1128 1128 1508; Mul 1128 779 1128;
  Mul 1508 1007 1150; Sub 1128 1128 1508; Add 1303 1303 1128; Div 1221 1221 999; Mul 1128 1080 1373;
  Sub 1221 1221 1128; Mul 1221 767 1221; Mul 1128 1008 1452; Add 1221 1221 1128; Add 1303 1303 1221;
  Div 1356 1356 999; Mul 1221 1056 1373; Sub 1356 1356 1221; Mul 1356 775 1356; Mul 1221 1009 1205;
  Sub 1356 1356 1221; Add 1303 1303 1356; Div 1592 1592 999; Mul 1356 1068 1373; Sub 1592 1592 1356;
  Mul 1592 815 1592; Mul 1356 1010 1307; Add 1592 1592 1356; Add 1303 1303 1592; Div 1321 1321 999;
  Mul 1592 1178 1373; Sub 1321 1321 1592; Mul 1321 833 1321; Mul 1592 1011 1290; Add 1321 1321 1592;
  Add 1303 1303 1321; Div 1303 1303 999; Mul 1373 1033 1373; Sub 1303 1303 1373; Mul 1373 756 1303;
  Add 1531 1531 1373; Sub 1183 1183 1531; Mul 1106 1012 1106; Mul 1117 211 1117; Mul 1531 986 1701;
  Sub 1117 1117 1531; Mul 1519 779 1519; Mul 1531 989 1150; Sub 1519 1519 1531; Add 1117 1117 1519;
  Mul 1115 767 1115; Mul 1519 991 1452; Add 1115 1115 1519; Add 1117 1117 1115; Mul 1408 775 1408;
  Mul 1115 993 1205; Sub 1408 1408 1115; Add 1117 1117 1408; Mul 1613 815 1613; Mul 1408 995 1307;
  Add 1613 1613 1408; Add 1117 1117 1613; Mul 1301 833 1301; Mul 1613 997 1290; Add 1301 1301 1613;
  Add 1117 1117 1301; Mul 1577 1006 1577; Mul 1301 987 1303; Add 1577 1577 1301; Sub 1117 1117 1577;
  Div 1117 1117 980; Mul 1395 1534 1395; Sub 1117 1117 1395; Mul 1395 957 1117; Add 1106 1106 1395;
  Sub 1183 1183 1106; Mul 1222 1013 1222; Mul 1454 211 1454; Mul 1106 944 1701; Sub 1454 1454 1106;
  Mul 1202 779 1202; Mul 1106 947 1150; Sub 1202 1202 1106; Add 1454 1454 1202; Mul 1582 767 1582;
  Mul 1202 949 1452; Add 1582 1582 1202; Add 1454 1454 1582; Mul 1269 775 1269; Mul 1582 951 1205;
  Sub 1269 1269 1582; Add 1454 1454 1269; Mul 1025 815 1025; Mul 1269 953 1307; Add 1025 1025 1269;
  Add 1454 1454 1025; Mul 1445 833 1445; Mul 1025 955 1290; Add 1445 1445 1025; Add 1454 1454 1445;
  Mul 1498 1006 1498; Mul 1445 945 1303; Add 1498 1498 1445; Sub 1454 1454 1498; Mul 1616 1012 1616;
  Mul 1498 973 1117; Add 1616 1616 1498; Sub 1454 1454 1616; Div 1454 1454 938; Mul 1387 1397 1387;
  Sub 1454 1454 1387; Mul 1387 922 1454; Add 1222 1222 1387; Sub 1183 1183 1222; Mul 1266 1014 1266;
  Mul 1309 779 1309; Mul 1222 910 1150; Sub 1309 1309 1222; Mul 1600 211 1600].
Definition casadi_f0_824 : list instruction := [
  Mul 1222 912 1701; Sub 1600 1600 1222; Sub 1309 1309 1600; Mul 1352 767 1352; Mul 1600 914 1452;
  Add 1352 1352 1600; Add 1309 1309 1352; Mul 1385 775 1385; Mul 1352 916 1205; Sub 1385 1385 1352;
  Sub 1309 1309 1385; Mul 1120 815 1120; Mul 1385 918 1307; Add 1120 1120 1385; Sub 1309 1309 1120;
  Mul 1635 833 1635; Mul 1120 920 1290; Add 1635 1635 1120; Sub 1309 1309 1635; Mul 1280 1006 1280;
  Mul 1635 911 1303; Add 1280 1280 1635; Sub 1309 1309 1280; Mul 1561 1012 1561; Mul 1280 967 1117;
  Add 1561 1561 1280; Sub 1309 1309 1561; Mul 1201 1013 1201; Mul 1561 932 1454; Add 1201 1201 1561;
  Sub 1309 1309 1201; Div 1309 1309 905; Mul 1298 1553 1298; Sub 1309 1309 1298; Mul 1298 895 1309;
  Add 1266 1266 1298; Sub 1183 1183 1266; Mul 1208 1015 1208; Mul 1076 211 1076; Mul 1701 881 1701;
  Sub 1076 1076 1701; Mul 1344 779 1344; Mul 1150 884 1150; Sub 1344 1344 1150; Add 1076 1076 1344;
  Mul 1314 767 1314; Mul 1452 886 1452; Add 1314 1314 1452; Add 1076 1076 1314; Mul 1374 775 1374;
  Mul 1205 888 1205; Sub 1374 1374 1205; Add 1076 1076 1374; Mul 1504 815 1504; Mul 1307 890 1307;
  Add 1504 1504 1307; Add 1076 1076 1504; Mul 1127 833 1127; Mul 1290 892 1290; Add 1127 1127 1290;
  Add 1076 1076 1127; Mul 1544 1006 1544; Mul 1127 882 1303; Add 1544 1544 1127; Sub 1076 1076 1544;
  Mul 1485 1012 1485; Mul 1544 959 1117; Add 1485 1485 1544; Sub 1076 1076 1485; Mul 1028 1013 1028;
  Mul 1485 924 1454; Add 1028 1028 1485; Sub 1076 1076 1028; Mul 1464 1014 1464; Mul 1028 897 1309;
  Add 1464 1464 1028; Sub 1076 1076 1464; Div 1076 1076 65; Mul 1695 1623 1695; Sub 1076 1076 1695;
  Mul 1695 875 1076; Add 1208 1208 1695; Sub 1183 1183 1208; Div 1183 1183 92; Mul 1377 759 1377;
  Sub 1183 1183 1377; Mul 1377 756 1080; Add 1377 778 1377; Mul 1208 987 1080; Sub 1208 991 1208;
  Div 1208 1208 980; Mul 1695 957 1208; Add 1377 1377 1695; Mul 1695 945 1080; Sub 1695 949 1695;
  Mul 1464 973 1208; Sub 1695 1695 1464; Div 1695 1695 938; Mul 1464 922 1695; Add 1377 1377 1464;
  Mul 1464 911 1080; Sub 1464 914 1464; Mul 1028 967 1208; Sub 1464 1464 1028; Mul 1028 932 1695;
  Sub 1464 1464 1028; Div 1464 1464 905; Mul 1028 895 1464; Add 1377 1377 1028; Mul 1028 882 1080;
  Sub 1028 886 1028; Mul 1485 959 1208; Sub 1028 1028 1485; Mul 1485 924 1695; Sub 1028 1028 1485;
  Mul 1485 897 1464; Sub 1028 1028 1485; Div 1028 1028 65; Mul 1485 875 1028; Add 1377 1377 1485;
  Div 1377 1377 92; Sub 1183 1183 1377; Out 2 30 1183; Add 1028 1028 1076; Out 2 31 1028; Add 1464 1464 1309;
  Out 2 32 1464; Add 1695 1695 1454; Out 2 33 1695; Add 1208 1208 1117; Out 2 34 1208; Add 1303 1080 1303;
  Out 2 35 1303; Arg 1303 2 42; Out 2 36 1303; Arg 1208 2 43; Out 2 37 1208; Arg 1117 2 44; Out 2 38 1117;
  Arg 1695 2 45; Out 2 39 1695; Arg 1454 2 46; Out 2 40 1454; Arg 1464 2 47; Out 2 41 1464; Mul 1309 756 1056;
  Sub 1309 769 1309; Mul 1028 987 1056; Sub 1028 993 1028].
Definition casadi_f0_825 : list instruction := [
  Div 1028 1028 980; Mul 1076 957 1028; Sub 1309 1309 1076; Mul 1076 945 1056; Sub 1076 951 1076;
  Mul 1183 973 1028; Sub 1076 1076 1183; Div 1076 1076 938; Mul 1183 922 1076; Sub 1309 1309 1183;
  Mul 1183 911 1056; Add 1183 916 1183; Mul 1377 967 1028; Add 1183 1183 1377; Mul 1377 932 1076;
  Add 1183 1183 1377; Div 1183 1183 905; Mul 1377 895 1183; Add 1309 1309 1377; Mul 1377 882 1056;
  Sub 1377 888 1377; Mul 1485 959 1028; Sub 1377 1377 1485; Mul 1485 924 1076; Sub 1377 1377 1485;
  Mul 1485 897 1183; Add 1377 1377 1485; Div 1377 1377 65; Mul 1485 875 1377; Sub 1309 1309 1485;
  Div 1309 1309 92; Arg 1485 2 38; Mul 1544 8 1485; Mul 1127 10 1544; Arg 1290 2 41; Mul 1504 16 1290;
  Mul 1307 21 1504; Mul 1290 15 1290; Mul 1374 18 1290; Mul 1205 14 1504; Add 1374 1374 1205; Mul 1205 15 1374;
  Sub 1307 1307 1205; Mul 1205 18 1504; Mul 1314 14 1290; Sub 1205 1205 1314; Mul 1205 16 1205;
  Mul 1314 17 1290; Sub 1205 1205 1314; Sub 1314 1307 1205; Mul 1452 28 1290; Mul 1344 26 1504;
  Add 1452 1452 1344; Mul 1344 1031 1452; Mul 1150 28 1504; Mul 1701 26 1290; Sub 1150 1150 1701;
  Mul 1701 29 1150; Sub 1266 1344 1701; Mul 1266 20 1266; Add 1314 1314 1266; Mul 1701 20 1701;
  Add 1307 1307 1701; Add 1314 1314 1307; Mul 1344 20 1344; Add 1205 1205 1344; Add 1205 1205 1307;
  Add 1344 1314 1205; Mul 1205 19 1205; Arg 1701 2 40; Mul 1266 35 1701; Mul 1298 30 1266; Sub 1205 1205 1298;
  Mul 1701 19 1701; Mul 1298 41 1701; Mul 1201 42 1504; Mul 1561 40 1290; Sub 1201 1201 1561; Mul 1561 43 1504;
  Sub 1201 1201 1561; Mul 1561 44 1150; Add 1201 1201 1561; Mul 1561 35 1201; Add 1298 1298 1561;
  Sub 1205 1205 1298; Mul 1298 19 1205; Mul 1561 38 1266; Sub 1298 1298 1561; Mul 1201 19 1201;
  Mul 1561 41 1266; Sub 1201 1201 1561; Mul 1561 12 1701; Mul 1314 35 1314; Add 1561 1561 1314;
  Sub 1201 1201 1561; Mul 1561 35 1201; Mul 1314 46 1701; Add 1561 1561 1314; Sub 1298 1298 1561;
  Sub 1344 1344 1298; Sub 1344 1344 1307; Mul 1561 50 1452; Mul 1314 1039 1561; Mul 1280 50 1150;
  Mul 1635 19 1280; Mul 1120 49 1266; Sub 1635 1635 1120; Mul 1120 51 1701; Sub 1635 1635 1120;
  Mul 1120 1041 1635; Sub 1385 1314 1120; Mul 1385 37 1385; Add 1344 1344 1385; Mul 1385 49 1701;
  Mul 1352 35 1280; Add 1385 1385 1352; Mul 1352 51 1266; Sub 1385 1385 1352; Mul 1352 64 1385;
  Add 1120 1352 1120; Mul 1120 37 1120; Add 1120 1307 1120; Add 1344 1344 1120; Mul 1600 43 1290;
  Mul 1222 42 1290; Mul 1387 40 1504; Add 1222 1222 1387; Sub 1600 1600 1222; Mul 1222 44 1452;
  Sub 1600 1600 1222; Mul 1222 67 1600; Mul 1387 19 1222; Mul 1616 71 1266; Sub 1387 1387 1616;
  Mul 1616 75 1701; Mul 1374 16 1374; Mul 1498 21 1290; Add 1374 1374 1498; Mul 1452 74 1452; Mul 1150 20 1150;
  Mul 1150 34 1150; Sub 1452 1452 1150; Add 1374 1374 1452; Add 1452 1374 1374; Mul 1150 35 1452;
  Sub 1616 1616 1150; Add 1387 1387 1616; Mul 1616 73 1701; Mul 1150 35 1374].
Definition casadi_f0_826 : list instruction := [
  Sub 1616 1616 1150; Mul 1150 19 1600; Mul 1498 70 1266; Sub 1150 1150 1498; Add 1616 1616 1150;
  Sub 1387 1387 1616; Mul 1616 76 1561; Mul 1150 37 1385; Mul 1498 57 1150; Sub 1616 1616 1498;
  Sub 1387 1387 1616; Mul 1616 67 1387; Mul 1616 66 1616; Arg 1498 2 39; Mul 1445 53 1498; Mul 1025 77 1445;
  Sub 1616 1616 1025; Mul 1498 66 1498; Mul 1025 11 1498; Mul 1269 53 1344; Add 1025 1025 1269;
  Sub 1616 1616 1025; Mul 1025 53 1616; Mul 1269 78 1498; Add 1025 1025 1269; Add 1344 1344 1025;
  Sub 1344 1344 1120; Mul 1269 87 1445; Mul 1582 83 1561; Mul 1202 66 1582; Add 1269 1269 1202;
  Mul 1202 88 1498; Mul 1385 83 1385; Mul 1106 53 1385; Add 1202 1202 1106; Add 1269 1269 1202;
  Mul 1202 1054 1269; Mul 1106 83 1635; Mul 1395 1058 1106; Sub 1577 1202 1395; Mul 1577 80 1577;
  Add 1344 1344 1577; Add 1120 1120 1025; Mul 1025 66 1385; Mul 1577 88 1445; Sub 1025 1025 1577;
  Mul 1577 87 1498; Mul 1301 53 1582; Sub 1577 1577 1301; Add 1025 1025 1577; Mul 1577 93 1025;
  Add 1395 1577 1395; Mul 1395 80 1395; Add 1120 1120 1395; Add 1344 1344 1120; Mul 1395 9 1344;
  Add 1127 1127 1395; Mul 1616 66 1616; Mul 1395 78 1445; Sub 1616 1616 1395; Sub 1616 1616 1387;
  Mul 1387 72 1269; Mul 1395 80 1025; Mul 1301 63 1395; Sub 1387 1387 1301; Sub 1616 1616 1387;
  Mul 1387 67 1616; Mul 1387 8 1387; Mul 1485 9 1485; Mul 1301 97 1485; Sub 1387 1387 1301; Add 1127 1127 1387;
  Mul 1387 9 1127; Mul 1301 84 1544; Add 1387 1387 1301; Sub 1301 1387 1120; Mul 1025 104 1025; Mul 1613 8 1025;
  Mul 1408 103 1485; Sub 1613 1613 1408; Mul 1408 105 1544; Mul 1115 104 1269; Mul 1519 9 1115;
  Sub 1408 1408 1519; Sub 1613 1613 1408; Mul 1408 33 1613; Mul 1519 104 1106; Mul 1531 1066 1519;
  Add 1373 1408 1531; Mul 1373 100 1373; Sub 1301 1301 1373; Mul 1127 8 1127; Mul 1373 84 1485;
  Sub 1127 1127 1373; Sub 1127 1127 1616; Mul 1616 103 1544; Mul 1373 9 1025; Add 1616 1616 1373;
  Mul 1373 105 1485; Mul 1321 8 1115; Add 1373 1373 1321; Sub 1616 1616 1373; Mul 1373 96 1616;
  Mul 1321 100 1613; Mul 1592 117 1321; Sub 1373 1373 1592; Add 1127 1127 1373; Mul 1127 67 1127;
  Mul 1127 114 1127; Arg 1373 2 37; Mul 1592 113 1373; Mul 1356 116 1592; Sub 1127 1127 1356; Mul 1373 114 1373;
  Mul 1356 119 1373; Sub 1344 1344 1387; Sub 1344 1344 1120; Mul 1120 1044 1616; Sub 1531 1120 1531;
  Mul 1531 100 1531; Add 1344 1344 1531; Sub 1344 1344 1301; Mul 1344 113 1344; Add 1356 1356 1344;
  Sub 1127 1127 1356; Mul 1127 113 1127; Mul 1356 118 1373; Add 1127 1127 1356; Sub 1301 1301 1127;
  Mul 1613 120 1613; Mul 1127 114 1613; Mul 1356 60 1592; Sub 1127 1127 1356; Mul 1356 121 1373;
  Mul 1344 120 1616; Mul 1531 113 1344; Add 1356 1356 1531; Add 1127 1127 1356; Mul 1356 112 1127;
  Mul 1531 120 1519; Mul 1387 123 1531; Add 1356 1356 1387; Mul 1356 99 1356; Sub 1301 1301 1356;
  Mul 1127 125 1127; Mul 1127 110 1127; Mul 1356 125 1531; Mul 1356 126 1356; Add 1127 1127 1356].
Definition casadi_f0_827 : list instruction := [
  Mul 1127 122 1127; Add 1301 1301 1127; Div 1127 1301 92; Mul 1301 6 1301; Mul 1356 130 1544; Mul 1201 19 1201;
  Mul 1387 46 1266; Sub 1201 1201 1387; Mul 1205 35 1205; Mul 1387 38 1701; Add 1205 1205 1387;
  Add 1201 1201 1205; Mul 1150 52 1150; Mul 1205 76 1635; Add 1150 1150 1205; Add 1201 1201 1150;
  Mul 1150 66 1201; Mul 1205 129 1445; Sub 1150 1150 1205; Mul 1205 132 1498; Mul 1387 70 1701;
  Mul 1221 35 1600; Add 1387 1387 1221; Mul 1221 73 1266; Mul 1128 19 1374; Add 1221 1221 1128;
  Add 1387 1387 1221; Mul 1452 19 1452; Mul 1221 75 1266; Add 1452 1452 1221; Mul 1222 35 1222;
  Mul 1221 71 1701; Add 1222 1222 1221; Add 1452 1452 1222; Sub 1387 1387 1452; Mul 1452 133 1561;
  Mul 1635 37 1635; Mul 1635 57 1635; Sub 1452 1452 1635; Sub 1387 1387 1452; Mul 1452 53 1387;
  Add 1205 1205 1452; Add 1150 1150 1205; Mul 1395 27 1395; Mul 1205 72 1106; Add 1395 1395 1205;
  Add 1150 1150 1395; Mul 1395 9 1150; Add 1356 1356 1395; Add 1395 1387 1387; Mul 1395 66 1395;
  Mul 1205 136 1445; Sub 1395 1395 1205; Mul 1205 129 1498; Mul 1452 53 1201; Add 1205 1205 1452;
  Sub 1395 1395 1205; Mul 1205 66 1387; Mul 1452 132 1445; Sub 1205 1205 1452; Sub 1395 1395 1205;
  Mul 1269 138 1269; Mul 1205 80 1106; Mul 1205 63 1205; Sub 1269 1269 1205; Sub 1395 1395 1269;
  Add 1269 1395 1395; Mul 1269 8 1269; Mul 1205 139 1485; Sub 1269 1269 1205; Add 1356 1356 1269;
  Mul 1269 8 1395; Mul 1205 137 1485; Sub 1269 1269 1205; Sub 1356 1356 1269; Mul 1616 140 1616;
  Mul 1269 100 1519; Mul 1269 117 1269; Sub 1616 1616 1269; Add 1356 1356 1616; Mul 1616 141 1531;
  Mul 1616 121 1616; Mul 1269 142 1344; Add 1616 1616 1269; Sub 1356 1356 1616; Mul 1356 114 1356;
  Mul 1616 134 1592; Sub 1356 1356 1616; Mul 1616 145 1373; Mul 1269 8 1150; Mul 1205 130 1485;
  Sub 1269 1269 1205; Mul 1205 137 1544; Mul 1452 9 1395; Add 1205 1205 1452; Sub 1269 1269 1205;
  Mul 1321 111 1321; Mul 1205 96 1519; Add 1321 1321 1205; Add 1269 1269 1321; Mul 1321 141 1613;
  Mul 1321 124 1321; Mul 1531 146 1531; Add 1321 1321 1531; Sub 1269 1269 1321; Mul 1269 113 1269;
  Add 1616 1616 1269; Sub 1356 1356 1616; Mul 1616 1073 1356; Add 1301 1301 1616; Mul 1616 150 1373;
  Mul 1269 149 1544; Mul 1321 148 1519; Mul 1531 147 1115; Mul 1205 109 1531; Sub 1321 1321 1205;
  Add 1395 1395 1321; Mul 1321 9 1395; Add 1269 1269 1321; Mul 1519 151 1519; Mul 1321 147 1025;
  Mul 1205 109 1321; Add 1519 1519 1205; Add 1150 1150 1519; Mul 1519 8 1150; Mul 1205 152 1485;
  Sub 1519 1519 1205; Sub 1269 1269 1519; Mul 1519 148 1544; Mul 1205 9 1531; Sub 1519 1519 1205;
  Mul 1205 8 1321; Mul 1452 151 1485; Sub 1205 1205 1452; Sub 1519 1519 1205; Mul 1205 108 1519;
  Add 1269 1269 1205; Mul 1269 113 1269; Add 1616 1616 1269; Mul 1269 152 1544; Mul 1150 9 1150;
  Add 1269 1269 1150; Mul 1395 8 1395; Mul 1150 149 1485; Sub 1395 1395 1150; Add 1269 1269 1395;
  Mul 1395 151 1544; Mul 1150 9 1321; Add 1395 1395 1150].
Definition casadi_f0_828 : list instruction := [
  Mul 1150 148 1485; Mul 1205 8 1531; Add 1150 1150 1205; Sub 1395 1395 1150; Mul 1395 108 1395;
  Add 1269 1269 1395; Mul 1269 114 1269; Mul 1395 155 1592; Sub 1269 1269 1395; Add 1616 1616 1269;
  Mul 1269 1050 1616; Add 1301 1301 1269; Mul 1269 159 1544; Mul 1395 156 1385; Mul 1395 82 1395;
  Mul 1150 157 1106; Add 1395 1395 1150; Sub 1201 1201 1395; Mul 1395 66 1201; Mul 1150 158 1445;
  Sub 1395 1395 1150; Mul 1150 161 1498; Mul 1106 156 1106; Mul 1106 87 1106; Mul 1205 160 1582;
  Sub 1106 1106 1205; Sub 1387 1387 1106; Mul 1106 53 1387; Add 1150 1150 1106; Add 1395 1395 1150;
  Mul 1150 9 1395; Add 1269 1269 1150; Mul 1387 66 1387; Mul 1150 161 1445; Sub 1387 1387 1150;
  Mul 1150 158 1498; Mul 1201 53 1201; Add 1150 1150 1201; Sub 1387 1387 1150; Mul 1150 8 1387;
  Mul 1201 163 1485; Sub 1150 1150 1201; Add 1269 1269 1150; Mul 1150 167 1498; Mul 1201 166 1385;
  Mul 1106 53 1201; Add 1150 1150 1106; Mul 1106 164 1445; Mul 1205 156 1582; Mul 1452 66 1205;
  Add 1106 1106 1452; Sub 1150 1150 1106; Mul 1106 8 1150; Mul 1452 165 1485; Sub 1106 1106 1452;
  Mul 1452 169 1544; Mul 1201 66 1201; Mul 1635 167 1445; Sub 1201 1201 1635; Mul 1635 164 1498;
  Mul 1205 53 1205; Sub 1635 1635 1205; Sub 1201 1201 1635; Mul 1635 9 1201; Add 1452 1452 1635;
  Sub 1106 1106 1452; Mul 1106 108 1106; Sub 1269 1269 1106; Mul 1269 114 1269; Mul 1106 162 1592;
  Sub 1269 1269 1106; Mul 1106 170 1373; Mul 1395 8 1395; Mul 1452 159 1485; Sub 1395 1395 1452;
  Mul 1452 163 1544; Mul 1387 9 1387; Add 1452 1452 1387; Sub 1395 1395 1452; Mul 1452 165 1544;
  Mul 1387 9 1150; Add 1452 1452 1387; Mul 1387 8 1201; Mul 1635 169 1485; Sub 1387 1387 1635;
  Add 1452 1452 1387; Mul 1387 108 1452; Add 1395 1395 1387; Mul 1395 113 1395; Add 1106 1106 1395;
  Sub 1269 1269 1106; Mul 1106 1070 1269; Add 1301 1301 1106; Mul 1106 179 1544; Mul 1395 177 1498;
  Mul 1387 174 1280; Mul 1280 173 1280; Mul 1635 49 1280; Add 1387 1387 1635; Add 1387 1387 1307;
  Mul 1635 174 1701; Mul 1205 35 1280; Add 1635 1635 1205; Mul 1205 176 1266; Sub 1635 1635 1205;
  Mul 1205 62 1635; Mul 1222 176 1701; Mul 1221 19 1280; Mul 1128 174 1266; Sub 1221 1221 1128;
  Sub 1222 1222 1221; Mul 1221 48 1222; Sub 1205 1205 1221; Add 1205 1387 1205; Mul 1221 53 1205;
  Add 1395 1395 1221; Mul 1221 176 1561; Sub 1600 1600 1221; Mul 1221 19 1600; Mul 1128 180 1266;
  Sub 1221 1221 1128; Mul 1128 182 1701; Mul 1280 56 1280; Mul 1561 174 1561; Sub 1280 1280 1561;
  Sub 1280 1280 1374; Mul 1374 35 1280; Add 1128 1128 1374; Add 1221 1221 1128; Mul 1128 55 1635;
  Add 1221 1221 1128; Mul 1128 66 1221; Mul 1374 181 1445; Sub 1128 1128 1374; Sub 1395 1395 1128;
  Mul 1128 86 1635; Sub 1395 1395 1128; Mul 1128 9 1395; Add 1106 1106 1128; Mul 1128 181 1498;
  Mul 1221 53 1221; Add 1128 1128 1221; Mul 1205 66 1205; Mul 1221 177 1445; Sub 1205 1205 1221;
  Add 1128 1128 1205; Mul 1205 91 1635; Add 1128 1128 1205; Mul 1205 8 1128].
Definition casadi_f0_829 : list instruction := [
  Mul 1221 184 1485; Sub 1205 1205 1221; Add 1106 1106 1205; Mul 1635 102 1635; Mul 1205 66 1222;
  Mul 1221 178 1445; Sub 1205 1205 1221; Mul 1221 8 1205; Mul 1374 185 1485; Sub 1221 1221 1374;
  Mul 1374 187 1544; Mul 1561 178 1498; Mul 1508 53 1222; Add 1561 1561 1508; Mul 1508 9 1561;
  Add 1374 1374 1508; Add 1221 1221 1374; Mul 1221 108 1221; Sub 1635 1635 1221; Add 1106 1106 1635;
  Mul 1106 114 1106; Mul 1635 183 1592; Sub 1106 1106 1635; Mul 1635 186 1373; Mul 1395 8 1395;
  Mul 1221 179 1485; Sub 1395 1395 1221; Mul 1221 184 1544; Mul 1128 9 1128; Add 1221 1221 1128;
  Sub 1395 1395 1221; Mul 1221 185 1544; Mul 1128 9 1205; Add 1221 1221 1128; Mul 1128 8 1561;
  Mul 1374 187 1485; Sub 1128 1128 1374; Sub 1221 1221 1128; Mul 1128 108 1221; Add 1395 1395 1128;
  Mul 1395 113 1395; Add 1635 1635 1395; Sub 1106 1106 1635; Mul 1635 1059 1106; Add 1301 1301 1635;
  Mul 1635 199 1544; Mul 1395 196 1701; Mul 1128 197 1504; Mul 1374 195 1290; Sub 1128 1128 1374;
  Mul 1374 190 1290; Mul 1508 192 1504; Add 1374 1374 1508; Mul 1508 198 1374; Add 1128 1128 1508;
  Mul 1508 35 1128; Add 1395 1395 1508; Mul 1508 189 1266; Mul 1476 25 1374; Mul 1113 190 1504;
  Mul 1364 192 1290; Sub 1113 1113 1364; Mul 1364 32 1113; Add 1476 1476 1364; Mul 1364 19 1476;
  Add 1508 1508 1364; Sub 1395 1395 1508; Mul 1508 48 1374; Mul 1364 19 1113; Mul 1330 194 1266;
  Sub 1364 1364 1330; Mul 1330 55 1364; Add 1508 1508 1330; Sub 1395 1395 1508; Mul 1508 66 1395;
  Mul 1330 193 1445; Sub 1508 1508 1330; Mul 1330 202 1498; Mul 1599 198 1113; Mul 1513 197 1290;
  Mul 1609 195 1504; Add 1513 1513 1609; Sub 1599 1599 1513; Mul 1513 62 1364; Mul 1609 194 1701;
  Mul 1113 35 1113; Add 1609 1609 1113; Mul 1113 48 1609; Sub 1513 1513 1113; Add 1513 1599 1513;
  Mul 1113 53 1513; Add 1330 1330 1113; Add 1508 1508 1330; Mul 1330 86 1364; Sub 1508 1508 1330;
  Mul 1330 9 1508; Add 1635 1635 1330; Mul 1513 66 1513; Mul 1330 202 1445; Sub 1513 1513 1330;
  Mul 1330 193 1498; Mul 1395 53 1395; Add 1330 1330 1395; Sub 1513 1513 1330; Mul 1330 91 1364;
  Add 1513 1513 1330; Mul 1330 8 1513; Mul 1395 205 1485; Sub 1330 1330 1395; Add 1635 1635 1330;
  Mul 1364 102 1364; Mul 1330 66 1609; Mul 1395 203 1445; Sub 1330 1330 1395; Mul 1395 191 1498;
  Mul 1113 53 1374; Sub 1395 1395 1113; Add 1330 1330 1395; Mul 1395 8 1330; Mul 1113 206 1485;
  Sub 1395 1395 1113; Mul 1113 208 1544; Mul 1555 191 1445; Mul 1278 66 1374; Add 1555 1555 1278;
  Mul 1278 203 1498; Mul 1424 53 1609; Add 1278 1278 1424; Add 1555 1555 1278; Mul 1278 9 1555;
  Sub 1113 1113 1278; Sub 1395 1395 1113; Mul 1395 108 1395; Sub 1364 1364 1395; Add 1635 1635 1364;
  Mul 1635 114 1635; Mul 1364 204 1592; Sub 1635 1635 1364; Mul 1364 207 1373; Mul 1508 8 1508;
  Mul 1395 199 1485; Sub 1508 1508 1395; Mul 1395 205 1544; Mul 1513 9 1513; Add 1395 1395 1513;
  Sub 1508 1508 1395; Mul 1395 206 1544; Mul 1513 9 1330; Add 1395 1395 1513].
Definition casadi_f0_830 : list instruction := [
  Mul 1513 208 1485; Mul 1113 8 1555; Add 1513 1513 1113; Sub 1395 1395 1513; Mul 1513 108 1395;
  Add 1508 1508 1513; Mul 1508 113 1508; Add 1364 1364 1508; Sub 1635 1635 1364; Mul 1364 1043 1635;
  Add 1301 1301 1364; Div 1301 1301 1085; Mul 1364 1072 1301; Sub 1127 1127 1364; Mul 1364 211 1127;
  Mul 1508 216 1373; Arg 1513 2 36; Mul 1113 215 1513; Mul 1278 113 1113; Sub 1508 1508 1278; Mul 1278 218 1508;
  Mul 1424 114 1303; Mul 1652 0 1592; Sub 1424 1424 1652; Mul 1652 217 1424; Add 1278 1278 1652;
  Mul 1513 216 1513; Mul 1652 1 1513; Mul 1215 215 1208; Add 1652 1652 1215; Sub 1278 1278 1652;
  Mul 1652 0 1373; Mul 1215 113 1303; Add 1652 1652 1215; Mul 1215 220 1652; Mul 1288 114 1113;
  Mul 1135 216 1592; Add 1288 1288 1135; Mul 1135 221 1288; Sub 1215 1215 1135; Sub 1278 1278 1215;
  Mul 1215 214 1278; Mul 1135 213 1215; Mul 1135 212 1135; Mul 1265 225 1135; Mul 1468 114 1513;
  Mul 1251 215 1592; Sub 1468 1468 1251; Mul 1251 101 1468; Mul 1032 107 1113; Sub 1251 1251 1032;
  Mul 1032 223 1251; Add 1180 1265 1032; Mul 1193 216 1208; Mul 1261 1 1113; Sub 1193 1193 1261;
  Mul 1261 113 1513; Mul 1246 215 1373; Add 1261 1261 1246; Mul 1246 218 1261; Mul 1602 228 1424;
  Add 1246 1246 1602; Add 1193 1193 1246; Mul 1246 221 1468; Mul 1602 224 1652; Add 1246 1246 1602;
  Sub 1193 1193 1246; Mul 1246 214 1193; Mul 1602 213 1246; Mul 1602 212 1602; Mul 1507 231 1602;
  Mul 1662 101 1288; Mul 1252 107 1513; Add 1662 1662 1252; Mul 1252 230 1662; Sub 1507 1507 1252;
  Sub 1252 1180 1507; Add 1032 1032 1265; Sub 1507 1032 1507; Add 1265 1252 1507; Mul 1641 144 1373;
  Mul 1573 215 1641; Mul 1082 240 1513; Add 1573 1573 1082; Mul 1082 236 1592; Mul 1114 238 1373;
  Add 1082 1082 1114; Mul 1114 220 1082; Mul 1368 237 1288; Add 1114 1114 1368; Sub 1573 1573 1114;
  Mul 1114 115 1113; Add 1573 1573 1114; Mul 1114 212 1662; Mul 1368 242 1114; Mul 1317 101 1373;
  Mul 1133 241 1317; Add 1368 1368 1133; Add 1368 1573 1368; Mul 1133 244 1368; Mul 1162 213 1193;
  Mul 1295 243 1162; Add 1175 1133 1295; Mul 1109 237 1468; Mul 1436 224 1082; Sub 1109 1109 1436;
  Mul 1641 216 1641; Mul 1436 240 1113; Sub 1641 1641 1436; Sub 1109 1109 1641; Mul 1641 115 1513;
  Sub 1109 1109 1641; Mul 1641 212 1251; Mul 1641 242 1641; Mul 1436 247 1317; Sub 1641 1641 1436;
  Sub 1641 1109 1641; Mul 1436 249 1641; Mul 1092 213 1278; Mul 1529 248 1092; Add 1359 1436 1529;
  Sub 1316 1175 1359; Sub 1265 1265 1316; Add 1529 1529 1436; Add 1295 1295 1133; Sub 1133 1529 1295;
  Add 1265 1265 1133; Mul 1133 9 1508; Mul 1436 217 1544; Add 1133 1133 1436; Mul 1436 8 1288;
  Mul 1316 220 1485; Add 1436 1436 1316; Sub 1133 1133 1436; Mul 1436 254 1133; Mul 1316 218 1544;
  Mul 1506 9 1424; Add 1316 1316 1506; Mul 1506 8 1652; Mul 1402 221 1485; Sub 1506 1506 1402;
  Sub 1316 1316 1506; Mul 1506 253 1316; Add 1436 1436 1506; Mul 1508 8 1508; Mul 1506 217 1485;
  Sub 1508 1508 1506; Mul 1506 220 1544; Mul 1402 9 1288].
Definition casadi_f0_831 : list instruction := [
  Sub 1506 1506 1402; Sub 1508 1508 1506; Mul 1506 257 1508; Mul 1402 221 1544; Mul 1142 9 1652;
  Add 1402 1402 1142; Mul 1142 8 1424; Mul 1690 218 1485; Sub 1142 1142 1690; Add 1402 1402 1142;
  Mul 1142 256 1402; Add 1506 1506 1142; Mul 1142 259 1513; Sub 1690 1208 1117; Mul 1517 215 1690;
  Add 1142 1142 1517; Sub 1506 1506 1142; Add 1436 1436 1506; Mul 1506 213 1436; Mul 1142 276 1506;
  Mul 1517 114 1544; Mul 1689 9 1592; Sub 1517 1517 1689; Mul 1689 8 1373; Mul 1161 113 1485;
  Sub 1689 1689 1161; Sub 1517 1517 1689; Mul 1689 260 1517; Mul 1161 9 1373; Mul 1020 113 1544;
  Add 1161 1161 1020; Mul 1020 8 1592; Mul 1401 114 1485; Add 1020 1020 1401; Sub 1161 1161 1020;
  Mul 1020 263 1161; Add 1689 1689 1020; Mul 1020 265 1689; Mul 1401 8 1468; Mul 1285 224 1485;
  Sub 1401 1401 1285; Mul 1285 9 1261; Mul 1478 228 1544; Add 1285 1285 1478; Add 1401 1401 1285;
  Mul 1285 262 1401; Add 1020 1020 1285; Mul 1285 127 1517; Mul 1478 268 1161; Add 1285 1285 1478;
  Mul 1478 216 1285; Mul 1462 267 1113; Sub 1478 1478 1462; Add 1020 1020 1478; Mul 1478 135 1133;
  Mul 1462 95 1513; Add 1478 1478 1462; Sub 1020 1020 1478; Mul 1478 102 1468; Mul 1462 108 1113;
  Sub 1478 1478 1462; Mul 1462 79 1401; Mul 1598 8 1261; Mul 1663 228 1485; Sub 1598 1598 1663; Mul 1663 9 1468;
  Mul 1060 224 1544; Add 1663 1663 1060; Sub 1598 1598 1663; Mul 1663 85 1598; Mul 1060 81 1113;
  Sub 1663 1663 1060; Add 1462 1462 1663; Add 1462 1478 1462; Mul 1663 269 1462; Mul 1663 275 1663;
  Mul 1060 79 1517; Mul 1551 85 1161; Add 1060 1060 1551; Mul 1551 102 1373; Sub 1060 1060 1551;
  Mul 1300 272 1060; Add 1663 1663 1300; Sub 1663 1020 1663; Mul 1300 258 1663; Add 1704 1142 1300;
  Mul 1360 254 1401; Mul 1370 265 1316; Add 1360 1360 1370; Mul 1370 216 1690; Mul 1668 259 1113;
  Sub 1370 1370 1668; Mul 1668 257 1598; Mul 1549 273 1402; Add 1668 1668 1549; Add 1370 1370 1668;
  Add 1360 1360 1370; Mul 1370 213 1360; Mul 1668 284 1370; Mul 1549 253 1689; Mul 1532 262 1133;
  Add 1549 1549 1532; Mul 1285 215 1285; Mul 1532 267 1513; Add 1285 1285 1532; Sub 1549 1549 1285;
  Mul 1285 95 1113; Mul 1532 135 1401; Add 1285 1285 1532; Add 1549 1549 1285; Mul 1285 79 1133;
  Mul 1532 85 1508; Mul 1240 81 1513; Sub 1532 1532 1240; Add 1285 1285 1532; Mul 1532 102 1288;
  Mul 1240 108 1513; Add 1532 1532 1240; Sub 1285 1285 1532; Mul 1240 269 1285; Mul 1413 275 1240;
  Mul 1190 283 1060; Add 1413 1413 1190; Sub 1413 1549 1413; Mul 1190 279 1413; Add 1235 1668 1190;
  Sub 1581 1704 1235; Mul 1340 292 1060; Mul 1164 288 1161; Mul 1276 287 1544; Mul 1691 108 1424;
  Mul 1483 9 1691; Add 1276 1276 1483; Mul 1483 102 1208; Mul 1169 108 1652; Add 1483 1483 1169;
  Mul 1169 8 1483; Mul 1673 289 1485; Sub 1169 1169 1673; Sub 1276 1276 1169; Mul 1169 264 1276;
  Add 1164 1164 1169; Mul 1169 291 1517; Mul 1691 8 1691; Mul 1673 287 1485; Sub 1691 1691 1673;
  Mul 1673 289 1544; Mul 1483 9 1483; Add 1673 1673 1483].
Definition casadi_f0_832 : list instruction := [
  Add 1691 1691 1673; Mul 1673 261 1691; Add 1169 1169 1673; Sub 1164 1164 1169; Mul 1169 281 1360;
  Mul 1673 278 1532; Sub 1169 1169 1673; Mul 1673 255 1478; Mul 1483 270 1436; Add 1673 1673 1483;
  Sub 1169 1169 1673; Add 1164 1164 1169; Mul 1169 213 1164; Mul 1169 269 1169; Mul 1673 275 1169;
  Add 1483 1340 1673; Mul 1077 288 1508; Mul 1495 256 1276; Add 1077 1077 1495; Mul 1495 295 1513;
  Mul 1427 102 1424; Mul 1556 215 1427; Add 1495 1495 1556; Sub 1077 1077 1495; Mul 1495 291 1133;
  Mul 1556 253 1691; Add 1495 1495 1556; Sub 1077 1077 1495; Mul 1495 296 1478; Mul 1556 254 1517;
  Mul 1094 261 1316; Add 1556 1556 1094; Mul 1094 257 1161; Mul 1163 264 1402; Add 1094 1094 1163;
  Add 1556 1556 1094; Mul 1094 270 1556; Add 1495 1495 1094; Mul 1094 274 1360; Mul 1163 278 1551;
  Sub 1094 1094 1163; Sub 1495 1495 1094; Add 1077 1077 1495; Mul 1495 213 1077; Mul 1495 269 1495;
  Mul 1094 282 1495; Mul 1163 297 1285; Add 1574 1094 1163; Mul 1430 216 1427; Mul 1188 295 1113;
  Sub 1430 1430 1188; Mul 1188 288 1598; Mul 1343 273 1276; Add 1188 1188 1343; Add 1430 1430 1188;
  Mul 1188 291 1401; Mul 1343 265 1691; Add 1188 1188 1343; Sub 1430 1430 1188; Mul 1188 274 1436;
  Mul 1343 255 1551; Sub 1188 1188 1343; Mul 1343 281 1556; Mul 1442 296 1532; Sub 1343 1343 1442;
  Sub 1188 1188 1343; Add 1430 1430 1188; Mul 1188 213 1430; Mul 1188 269 1188; Mul 1343 271 1188;
  Mul 1442 300 1462; Add 1533 1343 1442; Add 1673 1673 1340; Add 1340 1533 1673; Add 1574 1574 1340;
  Sub 1037 1483 1574; Add 1163 1163 1094; Add 1442 1442 1343; Add 1483 1442 1483; Add 1163 1163 1483;
  Sub 1673 1673 1163; Add 1037 1037 1673; Add 1190 1190 1668; Add 1300 1300 1142; Sub 1142 1190 1300;
  Add 1037 1037 1142; Sub 1581 1581 1037; Mul 1037 66 1133; Mul 1142 253 1445; Sub 1037 1037 1142;
  Mul 1142 53 1508; Mul 1668 256 1498; Add 1142 1142 1668; Sub 1037 1037 1142; Mul 1142 308 1037;
  Mul 1668 66 1316; Mul 1673 254 1445; Sub 1668 1668 1673; Mul 1673 257 1498; Mul 1343 53 1402;
  Add 1673 1673 1343; Sub 1668 1668 1673; Mul 1673 304 1668; Add 1142 1142 1673; Mul 1673 53 1133;
  Mul 1343 253 1498; Add 1673 1673 1343; Mul 1343 66 1508; Mul 1094 256 1445; Sub 1343 1343 1094;
  Add 1673 1673 1343; Mul 1343 311 1673; Mul 1094 254 1498; Mul 1337 53 1316; Add 1094 1094 1337;
  Mul 1337 66 1402; Mul 1572 257 1445; Sub 1337 1337 1572; Add 1094 1094 1337; Mul 1337 310 1094;
  Add 1343 1343 1337; Mul 1337 313 1513; Add 1572 1695 1690; Mul 1248 215 1572; Add 1337 1337 1248;
  Sub 1343 1343 1337; Add 1142 1142 1343; Mul 1343 213 1142; Mul 1337 330 1343; Mul 1248 66 1517;
  Mul 1211 261 1445; Sub 1248 1248 1211; Mul 1211 53 1161; Mul 1324 264 1498; Add 1211 1211 1324;
  Sub 1248 1248 1211; Mul 1211 314 1248; Mul 1324 53 1517; Mul 1016 261 1498; Add 1324 1324 1016;
  Mul 1016 66 1161; Mul 1143 264 1445; Sub 1016 1016 1143; Add 1324 1324 1016; Mul 1016 317 1324;
  Add 1211 1211 1016; Mul 1016 319 1211; Mul 1143 66 1401; Mul 1296 265 1445].
Definition casadi_f0_833 : list instruction := [
  Sub 1143 1143 1296; Mul 1296 53 1598; Mul 1354 273 1498; Add 1296 1296 1354; Sub 1143 1143 1296;
  Mul 1296 316 1143; Add 1016 1016 1296; Mul 1296 128 1248; Mul 1354 322 1324; Add 1296 1296 1354;
  Mul 1354 216 1296; Mul 1341 321 1113; Sub 1354 1354 1341; Add 1016 1016 1354; Mul 1354 131 1037;
  Mul 1341 68 1513; Add 1354 1354 1341; Sub 1016 1016 1354; Mul 1354 91 1401; Mul 1341 86 1598;
  Add 1354 1354 1341; Add 1354 1478 1354; Mul 1341 61 1143; Mul 1302 53 1401; Mul 1087 265 1498;
  Add 1302 1302 1087; Mul 1087 66 1598; Mul 1144 273 1445; Sub 1087 1087 1144; Add 1302 1302 1087;
  Mul 1087 54 1302; Mul 1144 47 1113; Sub 1087 1087 1144; Add 1341 1341 1087; Add 1341 1354 1341;
  Mul 1087 323 1341; Mul 1087 329 1087; Mul 1144 91 1517; Mul 1161 86 1161; Add 1144 1144 1161;
  Sub 1144 1144 1551; Mul 1161 61 1248; Mul 1441 54 1324; Add 1161 1161 1441; Add 1161 1144 1161;
  Mul 1441 326 1161; Add 1087 1087 1441; Sub 1087 1016 1087; Mul 1441 312 1087; Add 1535 1337 1441;
  Mul 1332 308 1143; Mul 1091 319 1668; Add 1332 1332 1091; Mul 1091 216 1572; Mul 1083 313 1113;
  Sub 1091 1091 1083; Mul 1083 311 1302; Mul 1383 327 1094; Add 1083 1083 1383; Add 1091 1091 1083;
  Add 1332 1332 1091; Mul 1091 213 1332; Mul 1083 338 1091; Mul 1383 304 1211; Mul 1118 316 1037;
  Add 1383 1383 1118; Mul 1296 215 1296; Mul 1118 321 1513; Add 1296 1296 1118; Sub 1383 1383 1296;
  Mul 1296 68 1113; Mul 1118 131 1143; Add 1296 1296 1118; Add 1383 1383 1296; Mul 1296 91 1133;
  Mul 1508 86 1508; Add 1296 1296 1508; Sub 1296 1296 1532; Mul 1508 61 1037; Mul 1118 54 1673;
  Mul 1018 47 1513; Sub 1118 1118 1018; Add 1508 1508 1118; Add 1508 1296 1508; Mul 1118 323 1508;
  Mul 1018 329 1118; Mul 1625 337 1161; Add 1018 1018 1625; Sub 1018 1383 1018; Mul 1625 333 1018;
  Add 1526 1083 1625; Sub 1156 1535 1526; Mul 1568 346 1161; Mul 1700 342 1248; Mul 1479 86 1690;
  Sub 1479 1479 1691; Mul 1691 66 1479; Mul 1196 341 1445; Sub 1691 1691 1196; Mul 1196 343 1498;
  Mul 1690 91 1690; Sub 1276 1276 1690; Mul 1690 53 1276; Add 1196 1196 1690; Sub 1691 1691 1196;
  Mul 1196 315 1691; Add 1700 1700 1196; Mul 1196 345 1324; Mul 1690 341 1498; Mul 1479 53 1479;
  Add 1690 1690 1479; Mul 1276 66 1276; Mul 1479 343 1445; Sub 1276 1276 1479; Add 1690 1690 1276;
  Mul 1276 318 1690; Add 1196 1196 1276; Add 1700 1700 1196; Mul 1196 332 1296; Mul 1276 335 1332;
  Add 1196 1196 1276; Mul 1276 309 1354; Mul 1479 324 1142; Add 1276 1276 1479; Sub 1196 1196 1276;
  Add 1700 1700 1196; Mul 1196 213 1700; Mul 1196 323 1196; Mul 1276 329 1196; Add 1479 1568 1276;
  Mul 1481 342 1037; Mul 1403 304 1691; Add 1481 1481 1403; Mul 1403 345 1673; Mul 1580 310 1690;
  Add 1403 1403 1580; Mul 1580 350 1513; Mul 1316 86 1316; Mul 1402 91 1402; Sub 1316 1316 1402;
  Sub 1427 1427 1316; Mul 1316 215 1427; Add 1580 1580 1316; Sub 1403 1403 1580; Add 1481 1481 1403;
  Mul 1403 349 1354; Mul 1580 308 1248; Mul 1316 315 1668; Add 1580 1580 1316].
Definition casadi_f0_834 : list instruction := [
  Mul 1316 311 1324; Mul 1402 318 1094; Add 1316 1316 1402; Add 1580 1580 1316; Mul 1316 324 1580;
  Add 1403 1403 1316; Mul 1316 332 1144; Mul 1402 328 1332; Add 1316 1316 1402; Sub 1403 1403 1316;
  Add 1481 1481 1403; Mul 1403 213 1481; Mul 1403 323 1403; Mul 1316 336 1403; Mul 1402 351 1508;
  Add 1685 1316 1402; Mul 1146 342 1143; Mul 1488 319 1691; Add 1146 1146 1488; Mul 1488 216 1427;
  Mul 1139 350 1113; Sub 1488 1488 1139; Mul 1139 345 1302; Mul 1606 327 1690; Add 1139 1139 1606;
  Add 1488 1488 1139; Add 1146 1146 1488; Mul 1488 309 1144; Mul 1139 328 1142; Add 1488 1488 1139;
  Mul 1139 349 1296; Mul 1606 335 1580; Add 1139 1139 1606; Sub 1488 1488 1139; Add 1146 1146 1488;
  Mul 1488 213 1146; Mul 1488 323 1488; Mul 1139 325 1488; Mul 1606 354 1341; Add 1311 1139 1606;
  Add 1276 1276 1568; Add 1568 1311 1276; Add 1685 1685 1568; Sub 1393 1479 1685; Add 1402 1402 1316;
  Add 1606 1606 1139; Add 1479 1606 1479; Add 1402 1402 1479; Sub 1276 1276 1402; Add 1393 1393 1276;
  Add 1625 1625 1083; Add 1441 1441 1337; Sub 1337 1625 1441; Add 1393 1393 1337; Sub 1156 1156 1393;
  Mul 1393 19 1037; Mul 1337 304 1266; Sub 1393 1393 1337; Mul 1337 35 1513; Mul 1083 215 1701;
  Add 1337 1337 1083; Add 1393 1393 1337; Mul 1337 362 1393; Mul 1083 19 1668; Mul 1276 308 1266;
  Sub 1083 1083 1276; Mul 1276 313 1701; Mul 1139 35 1572; Add 1276 1276 1139; Sub 1083 1083 1276;
  Mul 1276 358 1083; Add 1337 1337 1276; Mul 1276 35 1037; Mul 1139 304 1701; Add 1276 1276 1139;
  Mul 1139 19 1513; Mul 1316 215 1266; Sub 1139 1139 1316; Sub 1276 1276 1139; Mul 1139 365 1276;
  Mul 1316 308 1701; Mul 1130 35 1668; Add 1316 1316 1130; Mul 1130 19 1572; Mul 1034 313 1266;
  Sub 1130 1130 1034; Add 1316 1316 1130; Mul 1130 364 1316; Add 1139 1139 1130; Mul 1130 367 1673;
  Sub 1034 1094 1454; Mul 1351 310 1034; Add 1130 1130 1351; Add 1139 1139 1130; Add 1337 1337 1139;
  Mul 1139 213 1337; Mul 1130 385 1139; Mul 1351 19 1248; Mul 1433 315 1266; Sub 1351 1351 1433;
  Mul 1433 368 1351; Mul 1469 35 1248; Mul 1192 315 1701; Add 1469 1469 1192; Mul 1192 39 1469;
  Mul 1412 373 1324; Add 1192 1192 1412; Add 1433 1433 1192; Mul 1192 372 1433; Mul 1412 19 1143;
  Mul 1643 319 1266; Sub 1412 1412 1643; Mul 1643 216 1701; Mul 1593 35 1113; Sub 1643 1643 1593;
  Sub 1412 1412 1643; Mul 1643 370 1412; Add 1192 1192 1643; Mul 1643 39 1351; Mul 1593 376 1469;
  Add 1643 1643 1593; Mul 1593 377 1643; Mul 1429 35 1143; Mul 1141 319 1701; Add 1429 1429 1141;
  Mul 1141 19 1113; Mul 1706 216 1266; Add 1141 1141 1706; Sub 1429 1429 1141; Mul 1141 375 1429;
  Add 1593 1593 1141; Add 1192 1192 1593; Mul 1593 69 1276; Add 1192 1192 1593; Mul 1593 62 1143;
  Mul 1141 55 1302; Mul 1706 48 1113; Sub 1141 1141 1706; Add 1593 1593 1141; Add 1593 1354 1593;
  Mul 1141 380 1412; Mul 1706 24 1429; Mul 1335 31 1302; Add 1706 1706 1335; Add 1141 1141 1706;
  Add 1141 1593 1141; Mul 1706 378 1141; Mul 1706 384 1706; Mul 1335 62 1248].
Definition casadi_f0_835 : list instruction := [
  Mul 1218 55 1324; Add 1335 1335 1218; Add 1335 1144 1335; Mul 1218 380 1351; Mul 1166 24 1469;
  Mul 1432 31 1324; Add 1166 1166 1432; Add 1218 1218 1166; Add 1218 1335 1218; Mul 1166 382 1218;
  Add 1706 1706 1166; Sub 1706 1192 1706; Mul 1166 366 1706; Add 1432 1130 1166; Mul 1173 362 1412;
  Mul 1254 372 1083; Add 1173 1173 1254; Mul 1254 365 1429; Mul 1444 377 1316; Add 1254 1254 1444;
  Mul 1444 367 1302; Mul 1457 327 1034; Add 1444 1444 1457; Add 1254 1254 1444; Add 1173 1173 1254;
  Mul 1254 213 1173; Mul 1444 393 1254; Mul 1457 358 1433; Mul 1049 370 1393; Add 1457 1457 1049;
  Mul 1049 364 1643; Mul 1603 375 1276; Add 1049 1049 1603; Add 1457 1457 1049; Mul 1049 69 1429;
  Sub 1457 1457 1049; Mul 1049 62 1037; Mul 1603 55 1673; Mul 1270 48 1513; Sub 1603 1603 1270;
  Add 1049 1049 1603; Add 1049 1296 1049; Mul 1603 380 1393; Mul 1270 24 1276; Mul 1497 31 1673;
  Add 1270 1270 1497; Add 1603 1603 1270; Add 1603 1049 1603; Mul 1270 378 1603; Mul 1497 384 1270;
  Mul 1274 392 1218; Add 1497 1497 1274; Sub 1497 1457 1497; Mul 1274 388 1497; Add 1587 1444 1274;
  Sub 1493 1432 1587; Mul 1315 401 1218; Mul 1510 397 1351; Mul 1570 48 1094; Mul 1206 55 1572;
  Sub 1570 1570 1206; Sub 1691 1691 1570; Mul 1570 19 1691; Mul 1206 396 1266; Sub 1570 1570 1206;
  Mul 1206 398 1701; Mul 1665 55 1668; Mul 1094 62 1094; Sub 1665 1665 1094; Sub 1427 1427 1665;
  Mul 1665 35 1427; Add 1206 1206 1665; Sub 1570 1570 1206; Mul 1206 369 1570; Add 1510 1510 1206;
  Mul 1206 400 1469; Mul 1665 396 1701; Mul 1691 35 1691; Add 1665 1665 1691; Mul 1427 19 1427;
  Mul 1691 398 1266; Sub 1427 1427 1691; Add 1665 1665 1427; Mul 1427 371 1665; Add 1206 1206 1427;
  Mul 1427 402 1324; Mul 1572 62 1572; Mul 1668 48 1668; Sub 1572 1572 1668; Sub 1690 1690 1572;
  Mul 1572 318 1690; Add 1427 1427 1572; Add 1206 1206 1427; Add 1510 1510 1206; Mul 1206 387 1049;
  Mul 1427 390 1173; Add 1206 1206 1427; Mul 1427 363 1593; Mul 1572 379 1337; Add 1427 1427 1572;
  Sub 1206 1206 1427; Add 1510 1510 1206; Mul 1206 213 1510; Mul 1206 378 1206; Mul 1427 384 1206;
  Add 1572 1315 1427; Mul 1668 397 1393; Mul 1691 358 1570; Add 1668 1668 1691; Mul 1691 400 1276;
  Mul 1094 364 1665; Add 1691 1691 1094; Mul 1094 402 1673; Mul 1355 310 1690; Add 1094 1094 1355;
  Add 1691 1691 1094; Add 1668 1668 1691; Mul 1691 405 1593; Mul 1094 362 1351; Mul 1355 369 1083;
  Add 1094 1094 1355; Mul 1355 365 1469; Mul 1125 371 1316; Add 1355 1355 1125; Mul 1125 367 1324;
  Mul 1450 318 1034; Add 1125 1125 1450; Add 1355 1355 1125; Add 1094 1094 1355; Mul 1355 379 1094;
  Add 1691 1691 1355; Mul 1355 387 1335; Mul 1125 383 1173; Add 1355 1355 1125; Sub 1691 1691 1355;
  Add 1668 1668 1691; Mul 1691 213 1668; Mul 1691 378 1691; Mul 1355 391 1691; Mul 1125 406 1603;
  Add 1450 1355 1125; Mul 1378 397 1412; Mul 1584 372 1570; Add 1378 1378 1584; Mul 1584 400 1429;
  Mul 1420 377 1665; Add 1584 1584 1420; Mul 1420 402 1302; Mul 1431 327 1690].
Definition casadi_f0_836 : list instruction := [
  Add 1420 1420 1431; Add 1584 1584 1420; Add 1378 1378 1584; Mul 1584 363 1335; Mul 1420 383 1337;
  Add 1584 1584 1420; Mul 1420 405 1049; Mul 1431 390 1094; Add 1420 1420 1431; Sub 1584 1584 1420;
  Add 1378 1378 1584; Mul 1584 213 1378; Mul 1584 378 1584; Mul 1420 381 1584; Mul 1431 409 1141;
  Add 1604 1420 1431; Add 1427 1427 1315; Add 1315 1604 1427; Add 1450 1450 1315; Sub 1017 1572 1450;
  Add 1125 1125 1355; Add 1431 1431 1420; Add 1572 1431 1572; Add 1125 1125 1572; Sub 1427 1427 1125;
  Add 1017 1017 1427; Add 1274 1274 1444; Add 1166 1166 1130; Sub 1130 1274 1166; Add 1017 1017 1130;
  Sub 1493 1493 1017; Mul 1017 413 1393; Sub 1130 1083 1464; Mul 1444 358 1130; Add 1017 1017 1444;
  Mul 1444 16 1276; Mul 1427 364 1290; Sub 1444 1444 1427; Mul 1427 15 1673; Mul 1420 310 1504;
  Add 1427 1427 1420; Sub 1444 1444 1427; Mul 1427 419 1444; Mul 1420 16 1316; Mul 1355 365 1290;
  Sub 1420 1420 1355; Mul 1355 367 1504; Mul 1281 15 1034; Add 1355 1355 1281; Sub 1420 1420 1355;
  Mul 1355 418 1420; Add 1427 1427 1355; Mul 1355 15 1276; Mul 1281 364 1504; Add 1355 1355 1281;
  Mul 1281 16 1673; Mul 1562 310 1290; Sub 1281 1281 1562; Add 1355 1355 1281; Mul 1281 422 1355;
  Mul 1562 365 1504; Mul 1676 15 1316; Add 1562 1562 1676; Mul 1676 16 1034; Mul 1565 367 1290;
  Sub 1676 1676 1565; Add 1562 1562 1676; Mul 1676 421 1562; Add 1281 1281 1676; Add 1427 1427 1281;
  Add 1017 1017 1427; Mul 1427 213 1017; Mul 1281 439 1427; Mul 1676 423 1351; Mul 1565 16 1469;
  Mul 1638 371 1290; Sub 1565 1565 1638; Mul 1638 15 1324; Mul 1186 318 1504; Add 1638 1638 1186;
  Sub 1565 1565 1638; Mul 1638 40 1565; Mul 1186 15 1469; Mul 1482 371 1504; Add 1186 1186 1482;
  Mul 1482 16 1324; Mul 1323 318 1290; Sub 1482 1482 1323; Add 1186 1186 1482; Mul 1482 42 1186;
  Add 1638 1638 1482; Add 1676 1676 1638; Mul 1638 372 1676; Mul 1482 424 1412; Add 1638 1638 1482;
  Mul 1482 40 1351; Mul 1323 14 1565; Mul 1684 18 1186; Add 1323 1323 1684; Add 1482 1482 1323;
  Mul 1323 429 1482; Mul 1684 16 1429; Mul 1167 377 1290; Sub 1684 1684 1167; Mul 1167 15 1302;
  Mul 1038 327 1504; Add 1167 1167 1038; Sub 1684 1684 1167; Mul 1167 428 1684; Add 1323 1323 1167;
  Add 1638 1638 1323; Mul 1323 43 1444; Mul 1167 431 1393; Sub 1323 1323 1167; Add 1638 1638 1323;
  Mul 1323 198 1412; Mul 1167 25 1429; Mul 1038 32 1302; Add 1167 1167 1038; Add 1323 1323 1167;
  Add 1323 1593 1323; Mul 1167 433 1412; Mul 1038 26 1684; Mul 1451 15 1429; Mul 1642 377 1504;
  Add 1451 1451 1642; Mul 1642 16 1302; Mul 1287 327 1290; Sub 1642 1642 1287; Add 1451 1451 1642;
  Mul 1642 28 1451; Add 1038 1038 1642; Add 1167 1167 1038; Add 1167 1323 1167; Mul 1038 430 1167;
  Mul 1038 438 1038; Mul 1642 198 1351; Mul 1287 25 1469; Mul 1453 32 1324; Add 1287 1287 1453;
  Add 1642 1642 1287; Add 1642 1335 1642; Mul 1287 433 1351; Mul 1453 26 1565; Mul 1448 28 1186;
  Add 1453 1453 1448; Add 1287 1287 1453; Add 1287 1642 1287; Mul 1453 435 1287].
Definition casadi_f0_837 : list instruction := [
  Add 1038 1038 1453; Sub 1038 1638 1038; Mul 1453 420 1038; Add 1448 1281 1453; Mul 1194 413 1412;
  Mul 1657 372 1130; Add 1194 1194 1657; Mul 1657 419 1684; Mul 1438 429 1420; Add 1657 1657 1438;
  Mul 1438 422 1451; Mul 1217 436 1562; Add 1438 1438 1217; Add 1657 1657 1438; Add 1194 1194 1657;
  Mul 1657 213 1194; Mul 1438 447 1657; Mul 1217 358 1676; Mul 1187 424 1393; Add 1217 1217 1187;
  Mul 1187 418 1482; Mul 1384 428 1444; Add 1187 1187 1384; Add 1217 1217 1187; Mul 1187 43 1684;
  Mul 1384 431 1412; Sub 1187 1187 1384; Sub 1217 1217 1187; Mul 1187 198 1393; Mul 1384 25 1276;
  Mul 1348 32 1673; Add 1384 1384 1348; Add 1187 1187 1384; Add 1187 1049 1187; Mul 1384 433 1393;
  Mul 1348 26 1444; Mul 1312 28 1355; Add 1348 1348 1312; Add 1384 1384 1348; Add 1384 1187 1384;
  Mul 1348 430 1384; Mul 1312 438 1348; Mul 1389 446 1287; Add 1312 1312 1389; Sub 1312 1217 1312;
  Mul 1389 442 1312; Add 1590 1438 1389; Sub 1693 1448 1590; Mul 1102 455 1287; Mul 1486 450 1351;
  Mul 1107 25 1034; Mul 1313 32 1316; Sub 1107 1107 1313; Sub 1570 1570 1107; Mul 1107 369 1570;
  Add 1486 1486 1107; Mul 1107 453 1565; Mul 1313 32 1083; Mul 1034 198 1034; Sub 1313 1313 1034;
  Sub 1665 1665 1313; Mul 1313 16 1665; Mul 1034 452 1290; Sub 1313 1313 1034; Mul 1034 454 1504;
  Mul 1316 198 1316; Mul 1083 25 1083; Sub 1316 1316 1083; Sub 1690 1690 1316; Mul 1316 15 1690;
  Add 1034 1034 1316; Sub 1313 1313 1034; Mul 1034 425 1313; Add 1107 1107 1034; Mul 1034 456 1186;
  Mul 1316 452 1504; Mul 1665 15 1665; Add 1316 1316 1665; Mul 1690 16 1690; Mul 1665 454 1290;
  Sub 1690 1690 1665; Add 1316 1316 1690; Mul 1690 427 1316; Add 1034 1034 1690; Add 1107 1107 1034;
  Add 1486 1486 1107; Mul 1107 441 1187; Mul 1034 444 1194; Add 1107 1107 1034; Mul 1034 417 1323;
  Mul 1690 432 1017; Add 1034 1034 1690; Sub 1107 1107 1034; Add 1486 1486 1107; Mul 1107 213 1486;
  Mul 1107 430 1107; Mul 1034 438 1107; Add 1690 1102 1034; Mul 1665 450 1393; Mul 1083 358 1570;
  Add 1665 1665 1083; Mul 1083 453 1444; Mul 1671 418 1313; Add 1083 1083 1671; Mul 1355 456 1355;
  Mul 1671 421 1316; Add 1355 1355 1671; Add 1083 1083 1355; Add 1665 1665 1083; Mul 1083 459 1323;
  Mul 1355 413 1351; Mul 1130 369 1130; Add 1355 1355 1130; Mul 1130 419 1565; Mul 1420 425 1420;
  Add 1130 1130 1420; Mul 1186 422 1186; Mul 1562 427 1562; Add 1186 1186 1562; Add 1130 1130 1186;
  Add 1355 1355 1130; Mul 1130 432 1355; Add 1083 1083 1130; Mul 1130 441 1642; Mul 1186 437 1194;
  Add 1130 1130 1186; Sub 1083 1083 1130; Add 1665 1665 1083; Mul 1083 213 1665; Mul 1083 430 1083;
  Mul 1130 445 1083; Mul 1186 460 1384; Add 1562 1130 1186; Mul 1420 450 1412; Mul 1570 372 1570;
  Add 1420 1420 1570; Mul 1570 453 1684; Mul 1313 429 1313; Add 1570 1570 1313; Mul 1313 456 1451;
  Mul 1316 436 1316; Add 1313 1313 1316; Add 1570 1570 1313; Add 1420 1420 1570; Mul 1570 417 1642;
  Mul 1313 437 1017; Add 1570 1570 1313; Mul 1313 459 1187; Mul 1316 444 1355].
Definition casadi_f0_838 : list instruction := [
  Add 1313 1313 1316; Sub 1570 1570 1313; Add 1420 1420 1570; Mul 1570 213 1420; Mul 1570 430 1570;
  Mul 1313 434 1570; Mul 1316 463 1167; Add 1671 1313 1316; Add 1034 1034 1102; Add 1102 1671 1034;
  Add 1562 1562 1102; Sub 1415 1690 1562; Add 1186 1186 1130; Add 1316 1316 1313; Add 1690 1316 1690;
  Add 1186 1186 1690; Sub 1034 1034 1186; Add 1415 1415 1034; Add 1389 1389 1438; Add 1453 1453 1281;
  Sub 1281 1389 1453; Add 1415 1415 1281; Sub 1693 1693 1415; Add 1493 1493 1693; Add 1156 1156 1493;
  Add 1581 1581 1156; Add 1265 1265 1581; Mul 1265 0 1265; Mul 1581 235 1303; Add 1265 1265 1581;
  Mul 1689 261 1689; Mul 1581 262 1517; Add 1689 1689 1581; Mul 1211 315 1211; Mul 1581 316 1248;
  Add 1211 1211 1581; Mul 1433 369 1433; Mul 1581 370 1351; Add 1433 1433 1581; Mul 1643 371 1643;
  Mul 1581 375 1469; Add 1643 1643 1581; Add 1433 1433 1643; Mul 1676 369 1676; Mul 1643 424 1351;
  Add 1676 1676 1643; Mul 1482 425 1482; Mul 1643 428 1565; Add 1482 1482 1643; Add 1676 1676 1482;
  Add 1482 1433 1676; Sub 1643 1603 1384; Mul 1581 480 1643; Sub 1156 1141 1167; Mul 1415 1197 1156;
  Add 1281 1581 1415; Mul 1281 20 1281; Add 1482 1482 1281; Add 1281 1211 1482; Mul 1438 485 1603;
  Mul 1034 50 1384; Add 1438 1438 1034; Sub 1034 1508 1438; Mul 1313 487 1034; Mul 1130 485 1141;
  Mul 1104 50 1167; Add 1130 1130 1104; Sub 1104 1341 1130; Mul 1567 1286 1104; Add 1608 1313 1567;
  Mul 1608 37 1608; Add 1281 1281 1608; Add 1608 1689 1281; Mul 1644 493 1508; Mul 1417 83 1438;
  Add 1644 1644 1417; Sub 1417 1285 1644; Mul 1134 495 1417; Mul 1667 493 1341; Mul 1696 83 1130;
  Add 1667 1667 1696; Sub 1696 1462 1667; Mul 1522 1294 1696; Add 1203 1134 1522; Mul 1203 80 1203;
  Add 1608 1608 1203; Mul 1203 237 1373; Mul 1082 113 1082; Sub 1203 1203 1082; Sub 1082 1608 1203;
  Mul 1388 501 1462; Mul 1148 104 1667; Add 1388 1388 1148; Sub 1148 1251 1388; Mul 1216 1299 1148;
  Mul 1179 501 1285; Mul 1116 104 1644; Add 1179 1179 1116; Add 1116 1662 1179; Mul 1632 503 1116;
  Sub 1650 1216 1632; Mul 1650 100 1650; Add 1082 1082 1650; Mul 1082 508 1082; Mul 1650 216 1278;
  Mul 1200 219 1113; Sub 1650 1650 1200; Mul 1200 215 1193; Mul 1181 227 1513; Add 1200 1200 1181;
  Add 1650 1650 1200; Mul 1200 500 1650; Add 1082 1082 1200; Add 1200 1457 1217; Mul 1643 20 1643;
  Mul 1181 512 1643; Sub 1394 1218 1287; Mul 1122 511 1394; Add 1181 1181 1122; Sub 1200 1200 1181;
  Add 1181 1383 1200; Mul 1034 37 1034; Mul 1122 516 1034; Mul 1586 485 1218; Mul 1199 50 1287;
  Add 1586 1586 1199; Sub 1199 1161 1586; Mul 1557 514 1199; Add 1122 1122 1557; Sub 1181 1181 1122;
  Add 1122 1549 1181; Mul 1417 80 1417; Mul 1557 520 1417; Mul 1628 493 1161; Mul 1391 83 1586;
  Add 1628 1628 1391; Sub 1391 1060 1628; Mul 1369 518 1391; Add 1557 1557 1369; Sub 1122 1122 1557;
  Add 1557 1573 1122; Mul 1116 100 1116; Mul 1369 524 1116; Mul 1461 501 1060; Mul 1088 104 1628;
  Add 1461 1461 1088; Add 1088 1317 1461; Mul 1411 522 1088; Add 1369 1369 1411].
Definition casadi_f0_839 : list instruction := [
  Add 1557 1557 1369; Mul 1369 526 1557; Mul 1411 221 1373; Mul 1652 113 1652; Add 1411 1411 1652;
  Mul 1424 114 1424; Mul 1652 218 1592; Sub 1424 1424 1652; Add 1411 1411 1424; Mul 1424 216 1411;
  Mul 1652 525 1113; Sub 1424 1424 1652; Mul 1652 521 1424; Add 1369 1369 1652; Add 1652 1192 1638;
  Mul 1030 20 1156; Mul 1030 512 1030; Mul 1232 529 1394; Add 1030 1030 1232; Sub 1652 1652 1030;
  Add 1030 1016 1652; Mul 1232 37 1104; Mul 1232 516 1232; Mul 1229 531 1199; Add 1232 1232 1229;
  Sub 1030 1030 1232; Add 1232 1020 1030; Mul 1229 80 1696; Mul 1229 520 1229; Mul 1213 533 1391;
  Add 1229 1229 1213; Sub 1232 1232 1229; Add 1229 1109 1232; Mul 1213 100 1148; Mul 1213 524 1213;
  Mul 1176 535 1088; Sub 1213 1213 1176; Sub 1229 1229 1213; Mul 1213 536 1229; Mul 1176 215 1411;
  Mul 1047 525 1513; Add 1176 1176 1047; Mul 1047 534 1176; Add 1213 1213 1047; Add 1369 1369 1213;
  Sub 1082 1082 1369; Mul 1369 120 1179; Mul 1213 527 1662; Sub 1369 1369 1213; Mul 1213 539 1369;
  Mul 1047 120 1461; Mul 1382 527 1317; Sub 1047 1047 1382; Mul 1382 526 1047; Mul 1361 538 1424;
  Add 1382 1382 1361; Mul 1361 508 1369; Mul 1291 537 1650; Add 1361 1361 1291; Add 1382 1382 1361;
  Mul 1361 540 1411; Mul 1291 214 1113; Mul 1678 525 1291; Sub 1361 1361 1678; Sub 1382 1382 1361;
  Mul 1382 141 1382; Mul 1678 537 1382; Add 1213 1213 1678; Mul 1678 527 1251; Mul 1129 120 1388;
  Add 1678 1678 1129; Mul 1129 546 1678; Mul 1399 544 1411; Mul 1238 214 1513; Mul 1560 525 1238;
  Add 1399 1399 1560; Mul 1560 508 1678; Mul 1347 543 1650; Add 1560 1560 1347; Mul 1347 536 1047;
  Mul 1326 538 1176; Add 1347 1347 1326; Add 1560 1560 1347; Sub 1560 1399 1560; Mul 1560 141 1560;
  Mul 1347 543 1560; Add 1129 1129 1347; Sub 1213 1213 1129; Add 1082 1082 1213; Mul 1213 553 1092;
  Mul 1129 238 1468; Mul 1261 236 1261; Mul 1347 144 1113; Sub 1261 1261 1347; Add 1129 1129 1261;
  Mul 1261 224 1129; Mul 1347 542 1468; Add 1261 1261 1347; Mul 1468 144 1468; Mul 1347 549 1113;
  Sub 1468 1468 1347; Mul 1347 216 1468; Mul 1326 548 1113; Sub 1347 1347 1326; Add 1261 1261 1347;
  Mul 1347 1334 1662; Mul 1326 1336 1317; Add 1292 1347 1326; Mul 1292 212 1292; Sub 1292 1261 1292;
  Mul 1225 249 1292; Add 1207 1213 1225; Mul 1275 556 1162; Mul 1129 220 1129; Mul 1288 542 1288;
  Sub 1129 1129 1288; Mul 1468 215 1468; Mul 1288 548 1513; Add 1468 1468 1288; Sub 1129 1129 1468;
  Mul 1468 241 1251; Mul 1114 225 1114; Sub 1468 1468 1114; Sub 1468 1129 1468; Mul 1114 244 1468;
  Add 1288 1275 1114; Sub 1207 1207 1288; Mul 1288 242 1135; Mul 1086 223 1317; Sub 1288 1288 1086;
  Mul 1086 1342 1251; Sub 1347 1086 1347; Mul 1347 212 1347; Sub 1347 1347 1203; Mul 1525 249 1347;
  Mul 1406 551 1092; Add 1688 1525 1406; Mul 1651 560 1368; Mul 1594 213 1411; Mul 1182 243 1594;
  Add 1219 1651 1182; Sub 1688 1688 1219; Add 1688 1288 1688; Sub 1207 1207 1688; Sub 1688 1203 1261;
  Mul 1219 219 1688; Mul 1559 557 1278; Add 1219 1219 1559; Mul 1559 227 1129].
Definition casadi_f0_840 : list instruction := [
  Mul 1327 555 1193; Add 1559 1559 1327; Add 1219 1219 1559; Mul 1559 525 1573; Mul 1327 239 1411;
  Add 1559 1559 1327; Add 1219 1219 1559; Mul 1559 340 1251; Mul 1327 231 1193; Mul 1537 227 1662;
  Sub 1327 1327 1537; Mul 1537 219 1251; Mul 1649 225 1278; Add 1537 1537 1649; Sub 1327 1327 1537;
  Mul 1327 212 1327; Mul 1537 225 1327; Add 1559 1559 1537; Mul 1537 242 1278; Mul 1649 219 1317;
  Sub 1537 1537 1649; Mul 1649 231 1411; Mul 1244 525 1662; Sub 1649 1649 1244; Sub 1537 1537 1649;
  Sub 1537 1215 1537; Mul 1537 212 1537; Mul 1649 242 1537; Mul 1244 559 1317; Sub 1649 1649 1244;
  Add 1559 1559 1649; Sub 1219 1219 1559; Mul 1219 213 1219; Sub 1207 1207 1219; Mul 1559 567 1506;
  Mul 1649 260 1401; Mul 1244 263 1598; Mul 1692 127 1113; Sub 1244 1244 1692; Add 1649 1649 1244;
  Mul 1244 265 1649; Mul 1692 547 1401; Add 1244 1244 1692; Mul 1401 127 1401; Mul 1598 268 1598;
  Mul 1692 563 1113; Sub 1598 1598 1692; Add 1401 1401 1598; Mul 1598 216 1401; Mul 1692 562 1113;
  Sub 1598 1598 1692; Add 1244 1244 1598; Mul 1598 1138 1285; Mul 1692 1357 1060; Add 1683 1598 1692;
  Mul 1683 269 1683; Add 1683 1244 1683; Mul 1062 258 1683; Add 1367 1559 1062; Mul 1480 570 1370;
  Mul 1649 253 1649; Mul 1133 547 1133; Add 1649 1649 1133; Mul 1401 215 1401; Mul 1133 562 1513;
  Add 1401 1401 1133; Sub 1649 1649 1401; Mul 1517 135 1517; Sub 1649 1649 1517; Mul 1240 271 1240;
  Mul 1517 283 1462; Add 1240 1240 1517; Sub 1240 1649 1240; Mul 1517 279 1240; Add 1401 1480 1517;
  Sub 1367 1367 1401; Mul 1401 300 1060; Mul 1133 275 1188; Add 1491 1401 1133; Mul 1646 271 1169;
  Mul 1243 292 1462; Add 1672 1646 1243; Add 1491 1491 1672; Mul 1672 1366 1462; Add 1598 1598 1672;
  Mul 1598 269 1598; Add 1598 1689 1598; Mul 1540 258 1598; Mul 1654 565 1506; Add 1242 1540 1654;
  Mul 1165 574 1413; Mul 1548 213 1556; Mul 1151 284 1548; Add 1633 1165 1151; Sub 1242 1242 1633;
  Add 1491 1491 1242; Sub 1367 1367 1491; Mul 1491 571 1436; Add 1242 1244 1689; Mul 1633 255 1242;
  Sub 1491 1491 1633; Mul 1633 278 1649; Mul 1362 569 1360; Add 1633 1633 1362; Add 1491 1491 1633;
  Mul 1633 296 1549; Mul 1362 280 1556; Add 1633 1633 1362; Add 1491 1491 1633; Mul 1633 471 1462;
  Mul 1362 278 1285; Mul 1111 282 1360; Add 1362 1362 1111; Mul 1111 255 1462; Mul 1223 271 1436;
  Add 1111 1111 1223; Sub 1362 1362 1111; Sub 1362 1164 1362; Mul 1362 269 1362; Mul 1111 271 1362;
  Add 1633 1633 1111; Mul 1111 573 1060; Mul 1223 255 1060; Mul 1627 275 1436; Add 1223 1223 1627;
  Mul 1627 296 1285; Mul 1358 282 1556; Add 1627 1627 1358; Sub 1223 1223 1627; Sub 1223 1430 1223;
  Mul 1223 269 1223; Mul 1627 275 1223; Add 1111 1111 1627; Sub 1633 1633 1111; Add 1491 1491 1633;
  Mul 1491 213 1491; Sub 1367 1367 1491; Mul 1633 581 1343; Mul 1111 314 1143; Mul 1627 317 1302;
  Mul 1358 128 1113; Sub 1627 1627 1358; Add 1111 1111 1627; Mul 1627 319 1111; Mul 1358 561 1143;
  Add 1627 1627 1358; Mul 1143 128 1143; Mul 1358 322 1302; Mul 1019 577 1113].
Definition casadi_f0_841 : list instruction := [
  Sub 1358 1358 1019; Add 1143 1143 1358; Mul 1358 216 1143; Mul 1019 576 1113; Sub 1358 1358 1019;
  Add 1627 1627 1358; Mul 1358 1379 1508; Mul 1019 1381 1161; Add 1185 1358 1019; Mul 1185 323 1185;
  Add 1185 1627 1185; Mul 1237 312 1185; Add 1681 1633 1237; Mul 1588 584 1091; Mul 1111 304 1111;
  Mul 1037 561 1037; Add 1111 1111 1037; Mul 1143 215 1143; Mul 1037 576 1513; Add 1143 1143 1037;
  Sub 1111 1111 1143; Mul 1248 131 1248; Sub 1111 1111 1248; Mul 1118 325 1118; Mul 1248 337 1341;
  Add 1118 1118 1248; Sub 1118 1111 1118; Mul 1248 333 1118; Add 1143 1588 1248; Sub 1681 1681 1143;
  Mul 1143 354 1161; Mul 1037 329 1488; Add 1456 1143 1037; Mul 1386 325 1196; Mul 1494 346 1341;
  Add 1487 1386 1494; Add 1456 1456 1487; Mul 1487 1390 1341; Add 1358 1358 1487; Mul 1358 323 1358;
  Add 1358 1211 1358; Mul 1353 312 1358; Mul 1492 579 1343; Add 1489 1353 1492; Mul 1089 588 1018;
  Mul 1021 213 1580; Mul 1329 338 1021; Add 1079 1089 1329; Sub 1489 1489 1079; Add 1456 1456 1489;
  Sub 1681 1681 1456; Mul 1456 585 1142; Add 1489 1627 1211; Mul 1079 309 1489; Sub 1456 1456 1079;
  Mul 1079 332 1111; Mul 1409 583 1332; Add 1079 1079 1409; Add 1456 1456 1079; Mul 1079 349 1383;
  Mul 1409 334 1580; Add 1079 1079 1409; Add 1456 1456 1079; Mul 1079 473 1341; Mul 1409 332 1508;
  Mul 1277 336 1332; Add 1409 1409 1277; Mul 1277 309 1341; Mul 1558 325 1142; Add 1277 1277 1558;
  Sub 1409 1409 1277; Sub 1409 1700 1409; Mul 1409 323 1409; Mul 1277 325 1409; Add 1079 1079 1277;
  Mul 1277 587 1161; Mul 1558 309 1161; Mul 1595 329 1142; Add 1558 1558 1595; Mul 1595 349 1508;
  Mul 1345 336 1580; Add 1595 1595 1345; Sub 1558 1558 1595; Sub 1558 1146 1558; Mul 1558 323 1558;
  Mul 1595 329 1558; Add 1277 1277 1595; Sub 1079 1079 1277; Add 1456 1456 1079; Mul 1456 213 1456;
  Sub 1681 1681 1456; Mul 1079 594 1139; Mul 1277 368 1412; Mul 1595 39 1429; Mul 1345 373 1302;
  Add 1595 1595 1345; Add 1277 1277 1595; Mul 1595 372 1277; Mul 1345 575 1412; Add 1595 1595 1345;
  Mul 1345 39 1412; Mul 1677 376 1429; Add 1345 1345 1677; Mul 1677 377 1345; Mul 1429 590 1429;
  Add 1677 1677 1429; Add 1595 1595 1677; Mul 1677 1404 1603; Mul 1429 1405 1218; Add 1119 1677 1429;
  Mul 1119 378 1119; Add 1119 1595 1119; Mul 1195 366 1119; Add 1123 1079 1195; Mul 1257 597 1254;
  Mul 1277 358 1277; Mul 1694 575 1393; Add 1277 1277 1694; Mul 1345 364 1345; Mul 1276 590 1276;
  Add 1345 1345 1276; Add 1277 1277 1345; Mul 1469 69 1469; Add 1277 1277 1469; Mul 1270 381 1270;
  Mul 1469 392 1141; Add 1270 1270 1469; Sub 1270 1277 1270; Mul 1469 388 1270; Add 1345 1257 1469;
  Sub 1123 1123 1345; Mul 1345 409 1218; Mul 1276 384 1584; Add 1694 1345 1276; Mul 1449 381 1206;
  Mul 1591 401 1141; Add 1297 1449 1591; Add 1694 1694 1297; Mul 1297 1414 1141; Add 1677 1677 1297;
  Mul 1677 378 1677; Add 1677 1433 1677; Mul 1140 366 1677; Mul 1571 592 1139; Add 1640 1140 1571;
  Mul 1396 601 1497; Mul 1131 213 1094; Mul 1258 393 1131; Add 1499 1396 1258].
Definition casadi_f0_842 : list instruction := [
  Sub 1640 1640 1499; Add 1694 1694 1640; Sub 1123 1123 1694; Mul 1694 598 1337; Add 1640 1595 1433;
  Mul 1499 363 1640; Sub 1694 1694 1499; Mul 1499 387 1277; Mul 1458 596 1173; Add 1499 1499 1458;
  Add 1694 1694 1499; Mul 1499 405 1457; Mul 1458 389 1094; Add 1499 1499 1458; Add 1694 1694 1499;
  Mul 1499 475 1141; Mul 1458 387 1603; Mul 1546 391 1173; Add 1458 1458 1546; Mul 1546 363 1141;
  Mul 1679 381 1337; Add 1546 1546 1679; Sub 1458 1458 1546; Sub 1458 1510 1458; Mul 1458 378 1458;
  Mul 1546 381 1458; Add 1499 1499 1546; Mul 1546 600 1218; Mul 1679 363 1218; Mul 1664 384 1337;
  Add 1679 1679 1664; Mul 1664 405 1603; Mul 1541 391 1094; Add 1664 1664 1541; Sub 1679 1679 1664;
  Sub 1679 1378 1679; Mul 1679 378 1679; Mul 1664 384 1679; Add 1546 1546 1664; Sub 1499 1499 1546;
  Add 1694 1694 1499; Mul 1694 213 1694; Sub 1123 1123 1694; Mul 1499 607 1427; Mul 1546 423 1412;
  Mul 1664 40 1684; Mul 1541 42 1451; Add 1664 1664 1541; Add 1546 1546 1664; Mul 1664 372 1546;
  Mul 1541 589 1412; Add 1664 1664 1541; Mul 1541 40 1412; Mul 1443 14 1684; Mul 1451 18 1451;
  Add 1443 1443 1451; Add 1541 1541 1443; Mul 1443 429 1541; Mul 1684 603 1684; Add 1443 1443 1684;
  Add 1664 1664 1443; Mul 1443 1428 1384; Mul 1684 1264 1287; Add 1451 1443 1684; Mul 1451 430 1451;
  Add 1451 1664 1451; Mul 1172 420 1451; Add 1475 1499 1172; Mul 1589 610 1657; Mul 1546 358 1546;
  Mul 1093 589 1393; Add 1546 1546 1093; Mul 1541 418 1541; Mul 1444 603 1444; Add 1541 1541 1444;
  Add 1546 1546 1541; Mul 1565 43 1565; Mul 1541 431 1351; Sub 1565 1565 1541; Add 1546 1546 1565;
  Mul 1348 434 1348; Mul 1565 446 1167; Add 1348 1348 1565; Sub 1348 1546 1348; Mul 1565 442 1348;
  Add 1541 1589 1565; Sub 1475 1475 1541; Mul 1541 463 1287; Mul 1444 438 1570; Add 1093 1541 1444;
  Mul 1502 434 1107; Mul 1110 455 1167; Add 1467 1502 1110; Add 1093 1093 1467; Mul 1467 1437 1167;
  Add 1443 1443 1467; Mul 1443 430 1443; Add 1443 1676 1443; Mul 1536 420 1443; Mul 1376 605 1427;
  Add 1121 1536 1376; Mul 1605 614 1312; Mul 1703 213 1355; Mul 1055 447 1703; Add 1247 1605 1055;
  Sub 1121 1121 1247; Add 1093 1093 1121; Sub 1475 1475 1093; Mul 1093 13 1017; Add 1121 1664 1676;
  Mul 1247 417 1121; Sub 1093 1093 1247; Mul 1247 441 1546; Mul 1081 609 1194; Add 1247 1247 1081;
  Add 1093 1093 1247; Mul 1247 459 1217; Mul 1081 443 1355; Add 1247 1247 1081; Add 1093 1093 1247;
  Mul 1247 477 1167; Mul 1081 441 1384; Mul 1455 445 1194; Add 1081 1081 1455; Mul 1455 417 1167;
  Mul 1503 434 1017; Add 1455 1455 1503; Sub 1081 1081 1455; Sub 1081 1486 1081; Mul 1081 430 1081;
  Mul 1455 434 1081; Add 1247 1247 1455; Mul 1455 611 1287; Mul 1503 417 1287; Mul 1552 438 1017;
  Add 1503 1503 1552; Mul 1552 459 1384; Mul 1198 445 1355; Add 1552 1552 1198; Sub 1503 1503 1552;
  Sub 1503 1420 1503; Mul 1503 430 1503; Mul 1552 438 1503; Add 1455 1455 1552; Sub 1247 1247 1455;
  Add 1093 1093 1247; Mul 1093 213 1093; Sub 1475 1475 1093; Add 1123 1123 1475].
Definition casadi_f0_843 : list instruction := [
  Add 1681 1681 1123; Add 1367 1367 1681; Add 1207 1207 1367; Mul 1207 216 1207; Mul 1247 554 1113;
  Sub 1207 1207 1247; Mul 1247 242 1602; Mul 1455 230 1317; Sub 1247 1247 1455; Mul 1455 560 1641;
  Mul 1552 248 1594; Add 1198 1455 1552; Mul 1347 244 1347; Mul 1675 551 1162; Add 1410 1347 1675;
  Sub 1198 1198 1410; Sub 1198 1247 1198; Mul 1410 556 1092; Mul 1509 249 1468; Add 1459 1410 1509;
  Mul 1617 558 1162; Sub 1086 1086 1326; Mul 1086 212 1086; Add 1086 1688 1086; Mul 1326 244 1086;
  Add 1210 1617 1326; Sub 1459 1459 1210; Add 1198 1198 1459; Mul 1459 219 1129; Mul 1210 555 1278;
  Add 1459 1459 1210; Mul 1210 227 1261; Mul 1209 550 1193; Add 1210 1210 1209; Add 1459 1459 1210;
  Mul 1210 525 1109; Mul 1209 246 1411; Add 1210 1210 1209; Add 1459 1459 1210; Mul 1210 231 1327;
  Mul 1209 340 1662; Sub 1210 1210 1209; Mul 1209 525 1251; Mul 1319 225 1411; Add 1209 1209 1319;
  Mul 1319 242 1193; Mul 1636 227 1317; Sub 1319 1319 1636; Sub 1209 1209 1319; Add 1209 1246 1209;
  Mul 1209 212 1209; Mul 1319 242 1209; Mul 1636 616 1317; Sub 1319 1319 1636; Sub 1210 1210 1319;
  Add 1459 1459 1210; Mul 1459 213 1459; Add 1198 1198 1459; Mul 1210 570 1506; Mul 1319 258 1240;
  Add 1636 1210 1319; Mul 1096 572 1370; Add 1672 1672 1692; Mul 1672 269 1672; Sub 1672 1672 1242;
  Mul 1692 279 1672; Add 1365 1096 1692; Sub 1636 1636 1365; Mul 1365 297 1060; Mul 1279 275 1495;
  Add 1473 1365 1279; Mul 1256 282 1169; Mul 1655 292 1285; Add 1234 1256 1655; Add 1473 1473 1234;
  Mul 1234 574 1663; Mul 1284 276 1548; Add 1524 1234 1284; Mul 1598 279 1598; Mul 1099 565 1370;
  Add 1074 1598 1099; Sub 1524 1524 1074; Add 1473 1473 1524; Sub 1636 1636 1473; Mul 1473 255 1649;
  Mul 1524 569 1436; Add 1473 1473 1524; Mul 1524 278 1244; Mul 1074 564 1360; Add 1524 1524 1074;
  Add 1473 1473 1524; Mul 1524 296 1020; Mul 1074 266 1556; Add 1524 1524 1074; Add 1473 1473 1524;
  Mul 1524 617 1060; Mul 1074 296 1462; Mul 1157 271 1556; Add 1074 1074 1157; Mul 1157 278 1060;
  Mul 1350 275 1360; Add 1157 1157 1350; Sub 1074 1074 1157; Sub 1074 1077 1074; Mul 1074 269 1074;
  Mul 1157 275 1074; Add 1524 1524 1157; Mul 1157 471 1285; Mul 1350 282 1362; Add 1157 1157 1350;
  Sub 1524 1524 1157; Add 1473 1473 1524; Mul 1473 213 1473; Add 1636 1636 1473; Mul 1524 584 1343;
  Mul 1157 312 1118; Add 1350 1524 1157; Mul 1419 586 1091; Add 1487 1487 1019; Mul 1487 323 1487;
  Sub 1487 1487 1489; Mul 1019 333 1487; Add 1484 1419 1019; Sub 1350 1350 1484; Mul 1484 351 1161;
  Mul 1227 329 1403; Add 1346 1484 1227; Mul 1305 336 1196; Mul 1622 346 1508; Add 1283 1305 1622;
  Add 1346 1346 1283; Mul 1283 588 1087; Mul 1255 330 1021; Add 1471 1283 1255; Mul 1358 333 1358;
  Mul 1226 579 1091; Add 1425 1358 1226; Sub 1471 1471 1425; Add 1346 1346 1471; Sub 1350 1350 1346;
  Mul 1346 309 1111; Mul 1471 583 1142; Add 1346 1346 1471; Mul 1471 332 1627; Mul 1425 578 1332;
  Add 1471 1471 1425; Add 1346 1346 1471; Mul 1471 349 1016; Mul 1425 320 1580].
Definition casadi_f0_844 : list instruction := [
  Add 1471 1471 1425; Add 1346 1346 1471; Mul 1471 619 1161; Mul 1425 349 1341; Mul 1527 325 1580;
  Add 1425 1425 1527; Mul 1527 332 1161; Mul 1253 329 1332; Add 1527 1527 1253; Sub 1425 1425 1527;
  Sub 1425 1481 1425; Mul 1425 323 1425; Mul 1527 329 1425; Add 1471 1471 1527; Mul 1527 473 1508;
  Mul 1253 336 1409; Add 1527 1527 1253; Sub 1471 1471 1527; Add 1346 1346 1471; Mul 1346 213 1346;
  Add 1350 1350 1346; Mul 1471 597 1139; Mul 1527 366 1270; Add 1253 1471 1527; Mul 1659 599 1254;
  Add 1297 1297 1429; Mul 1297 378 1297; Sub 1297 1297 1640; Mul 1429 388 1297; Add 1699 1659 1429;
  Sub 1253 1253 1699; Mul 1699 406 1218; Mul 1158 384 1691; Add 1126 1699 1158; Mul 1159 391 1206;
  Mul 1523 401 1603; Add 1463 1159 1523; Add 1126 1126 1463; Mul 1463 601 1706; Mul 1042 385 1131;
  Add 1189 1463 1042; Mul 1677 388 1677; Mul 1538 592 1254; Add 1363 1677 1538; Sub 1189 1189 1363;
  Add 1126 1126 1189; Sub 1253 1253 1126; Mul 1126 363 1277; Mul 1189 596 1337; Add 1126 1126 1189;
  Mul 1189 387 1595; Mul 1363 591 1173; Add 1189 1189 1363; Add 1126 1126 1189; Mul 1189 405 1192;
  Mul 1363 374 1094; Add 1189 1189 1363; Add 1126 1126 1189; Mul 1189 621 1218; Mul 1363 405 1141;
  Mul 1426 381 1094; Add 1363 1363 1426; Mul 1426 387 1218; Mul 1648 384 1173; Add 1426 1426 1648;
  Sub 1363 1363 1426; Sub 1363 1668 1363; Mul 1363 378 1363; Mul 1426 384 1363; Add 1189 1189 1426;
  Mul 1426 475 1603; Mul 1648 391 1458; Add 1426 1426 1648; Sub 1189 1189 1426; Add 1126 1126 1189;
  Mul 1126 213 1126; Add 1253 1253 1126; Mul 1189 610 1427; Mul 1426 420 1348; Add 1648 1189 1426;
  Mul 1576 612 1657; Add 1467 1467 1684; Mul 1467 430 1467; Sub 1467 1467 1121; Mul 1684 442 1467;
  Add 1631 1576 1684; Sub 1648 1648 1631; Mul 1631 460 1287; Mul 1289 438 1083; Add 1022 1631 1289;
  Mul 1325 445 1107; Mul 1440 455 1384; Add 1647 1325 1440; Add 1022 1022 1647; Mul 1647 614 1038;
  Mul 1271 439 1703; Add 1400 1647 1271; Mul 1443 442 1443; Mul 1145 605 1657; Add 1239 1443 1145;
  Sub 1400 1400 1239; Add 1022 1022 1400; Sub 1648 1648 1022; Mul 1022 417 1546; Mul 1400 609 1017;
  Add 1022 1022 1400; Mul 1400 441 1664; Mul 1239 604 1194; Add 1400 1400 1239; Add 1022 1022 1400;
  Mul 1400 459 1638; Mul 1239 426 1355; Add 1400 1400 1239; Add 1022 1022 1400; Mul 1400 623 1287;
  Mul 1239 459 1167; Mul 1610 434 1355; Add 1239 1239 1610; Mul 1610 441 1287; Mul 1084 438 1194;
  Add 1610 1610 1084; Sub 1239 1239 1610; Sub 1239 1665 1239; Mul 1239 430 1239; Mul 1610 438 1239;
  Add 1400 1400 1610; Mul 1610 477 1384; Mul 1084 445 1081; Add 1610 1610 1084; Sub 1400 1400 1610;
  Add 1022 1022 1400; Mul 1022 213 1022; Add 1648 1648 1022; Add 1253 1253 1648; Add 1350 1350 1253;
  Add 1636 1636 1350; Add 1198 1198 1636; Mul 1198 215 1198; Mul 1400 613 1513; Add 1198 1198 1400;
  Sub 1207 1207 1198; Mul 1198 212 1092; Mul 1400 242 1198; Mul 1610 624 1317; Sub 1400 1400 1610;
  Mul 1610 212 1594; Mul 1084 231 1610; Mul 1098 626 1662; Sub 1084 1084 1098].
Definition casadi_f0_845 : list instruction := [
  Add 1084 1135 1084; Sub 1400 1400 1084; Mul 1084 213 1537; Add 1098 1400 1084; Mul 1653 269 1506;
  Mul 1607 275 1653; Mul 1154 629 1060; Add 1466 1607 1154; Mul 1578 631 1285; Mul 1416 269 1548;
  Mul 1241 282 1416; Add 1528 1578 1241; Add 1528 1188 1528; Sub 1466 1466 1528; Mul 1528 213 1223;
  Add 1470 1466 1528; Mul 1434 323 1343; Mul 1174 329 1434; Mul 1670 634 1161; Add 1132 1174 1670;
  Mul 1639 636 1508; Mul 1624 323 1021; Mul 1308 336 1624; Add 1515 1639 1308; Add 1515 1488 1515;
  Sub 1132 1132 1515; Mul 1515 213 1558; Add 1585 1132 1515; Mul 1075 378 1139; Mul 1375 384 1075;
  Mul 1233 639 1218; Add 1349 1375 1233; Mul 1036 641 1603; Mul 1245 378 1131; Mul 1505 391 1245;
  Add 1439 1036 1505; Add 1439 1584 1439; Sub 1349 1349 1439; Mul 1439 213 1679; Add 1583 1349 1439;
  Mul 1071 430 1427; Mul 1658 438 1071; Mul 1407 644 1287; Add 1170 1658 1407; Mul 1460 646 1384;
  Mul 1112 430 1703; Mul 1024 445 1112; Add 1542 1460 1024; Add 1542 1570 1542; Sub 1170 1170 1542;
  Mul 1542 213 1503; Add 1620 1170 1542; Add 1583 1583 1620; Add 1585 1585 1583; Add 1470 1470 1585;
  Add 1098 1098 1470; Mul 1098 540 1098; Mul 1474 628 1291; Sub 1098 1098 1474; Mul 1474 212 1162;
  Mul 1333 242 1474; Mul 1660 650 1317; Sub 1333 1333 1660; Mul 1660 626 1251; Mul 1137 225 1610;
  Add 1660 1660 1137; Add 1660 1602 1660; Sub 1333 1333 1660; Mul 1660 213 1209; Add 1137 1333 1660;
  Mul 1338 631 1462; Mul 1191 271 1416; Add 1318 1338 1191; Sub 1318 1495 1318; Mul 1520 269 1370;
  Mul 1177 275 1520; Mul 1168 655 1060; Add 1048 1177 1168; Add 1318 1318 1048; Mul 1048 213 1074;
  Sub 1268 1318 1048; Mul 1423 636 1341; Mul 1147 325 1624; Add 1263 1423 1147; Sub 1263 1403 1263;
  Mul 1465 323 1091; Mul 1090 329 1465; Mul 1563 659 1161; Add 1680 1090 1563; Add 1263 1263 1680;
  Mul 1680 213 1425; Sub 1575 1263 1680; Mul 1597 641 1141; Mul 1231 381 1245; Add 1103 1597 1231;
  Sub 1103 1691 1103; Mul 1500 378 1254; Mul 1051 384 1500; Mul 1566 663 1218; Add 1310 1051 1566;
  Add 1103 1103 1310; Mul 1310 213 1363; Sub 1380 1103 1310; Mul 1511 646 1167; Mul 1687 434 1112;
  Add 1554 1511 1687; Sub 1554 1083 1554; Mul 1645 430 1657; Mul 1545 438 1645; Mul 1634 667 1287;
  Add 1124 1545 1634; Add 1554 1554 1124; Mul 1124 213 1239; Sub 1447 1554 1124; Add 1380 1380 1447;
  Add 1575 1575 1380; Add 1268 1268 1575; Add 1137 1137 1268; Mul 1137 544 1137; Mul 1101 653 1238;
  Add 1137 1137 1101; Add 1098 1098 1137; Sub 1207 1207 1098; Add 1082 1082 1207; Mul 1082 1 1082;
  Mul 1207 509 1208; Add 1082 1082 1207; Add 1265 1265 1082; Mul 1082 602 1122; Mul 1207 216 1556;
  Mul 1098 296 1113; Sub 1207 1207 1098; Mul 1098 517 1207; Add 1082 1082 1098; Mul 1098 670 1232;
  Mul 1137 215 1556; Mul 1101 296 1513; Add 1137 1137 1101; Mul 1101 532 1137; Add 1098 1098 1101;
  Add 1082 1082 1098; Mul 1608 671 1608; Mul 1098 216 1436; Mul 1101 255 1113; Sub 1098 1098 1101;
  Mul 1101 215 1360; Mul 1666 278 1513; Add 1101 1101 1666; Add 1098 1098 1101].
Definition casadi_f0_846 : list instruction := [
  Mul 1101 492 1098; Add 1608 1608 1101; Sub 1082 1082 1608; Mul 1608 675 1179; Mul 1101 215 1164;
  Mul 1666 290 1513; Add 1101 1101 1666; Mul 1666 674 1556; Mul 1435 216 1551; Mul 1228 274 1113;
  Add 1435 1435 1228; Mul 1228 296 1435; Sub 1666 1666 1228; Mul 1228 676 1436; Mul 1478 215 1478;
  Mul 1477 270 1513; Add 1478 1478 1477; Mul 1532 216 1532; Mul 1477 281 1113; Add 1532 1532 1477;
  Sub 1478 1478 1532; Mul 1532 255 1478; Add 1228 1228 1532; Add 1666 1666 1228; Add 1101 1101 1666;
  Mul 1666 602 1461; Mul 1228 523 1207; Add 1666 1666 1228; Mul 1228 671 1179; Mul 1532 502 1098;
  Add 1228 1228 1532; Add 1666 1666 1228; Sub 1666 1101 1666; Mul 1666 672 1666; Mul 1228 502 1666;
  Add 1608 1608 1228; Mul 1228 679 1388; Mul 1164 216 1164; Mul 1532 290 1113; Sub 1164 1164 1532;
  Mul 1532 676 1360; Mul 1477 278 1478; Add 1532 1532 1477; Mul 1477 680 1556; Mul 1097 274 1513;
  Mul 1551 215 1551; Sub 1097 1097 1551; Mul 1551 296 1097; Add 1477 1477 1551; Add 1532 1532 1477;
  Sub 1164 1164 1532; Mul 1532 671 1388; Mul 1477 505 1098; Add 1532 1532 1477; Mul 1477 670 1461;
  Mul 1551 523 1137; Add 1477 1477 1551; Add 1532 1532 1477; Add 1532 1164 1532; Mul 1532 672 1532;
  Mul 1477 505 1532; Add 1228 1228 1477; Sub 1608 1608 1228; Add 1082 1082 1608; Mul 1470 674 1470;
  Mul 1608 633 1435; Sub 1470 1470 1608; Mul 1268 680 1268; Mul 1608 657 1097; Add 1268 1268 1608;
  Mul 1416 275 1416; Mul 1060 631 1060; Add 1608 1416 1060; Mul 1228 629 1285; Mul 1477 282 1653;
  Add 1551 1228 1477; Mul 1512 655 1462; Mul 1204 271 1520; Add 1682 1512 1204; Add 1060 1060 1416;
  Add 1416 1682 1060; Add 1551 1551 1416; Sub 1236 1608 1551; Add 1477 1477 1228; Add 1204 1204 1512;
  Add 1608 1204 1608; Add 1477 1477 1608; Sub 1060 1060 1477; Sub 1236 1236 1060; Mul 1624 329 1624;
  Mul 1161 636 1161; Add 1060 1624 1161; Mul 1512 634 1508; Mul 1228 336 1434; Add 1550 1512 1228;
  Mul 1611 659 1341; Mul 1496 325 1465; Add 1392 1611 1496; Add 1161 1161 1624; Add 1624 1392 1161;
  Add 1550 1550 1624; Sub 1149 1060 1550; Add 1228 1228 1512; Add 1496 1496 1611; Add 1060 1496 1060;
  Add 1228 1228 1060; Sub 1161 1161 1228; Sub 1149 1149 1161; Mul 1245 384 1245; Mul 1218 641 1218;
  Add 1161 1245 1218; Mul 1611 639 1603; Mul 1512 391 1075; Add 1398 1611 1512; Mul 1422 663 1141;
  Mul 1267 381 1500; Add 1339 1422 1267; Add 1218 1218 1245; Add 1245 1339 1218; Add 1398 1398 1245;
  Sub 1224 1161 1398; Add 1512 1512 1611; Add 1267 1267 1422; Add 1161 1267 1161; Add 1512 1512 1161;
  Sub 1218 1218 1512; Sub 1224 1224 1218; Mul 1112 438 1112; Mul 1218 646 1287; Add 1422 1112 1218;
  Mul 1611 644 1384; Mul 1621 445 1071; Add 1320 1611 1621; Mul 1108 667 1167; Mul 1272 434 1645;
  Add 1579 1108 1272; Add 1218 1218 1112; Add 1112 1579 1218; Add 1320 1320 1112; Sub 1547 1422 1320;
  Add 1621 1621 1611; Add 1272 1272 1108; Add 1422 1272 1422; Add 1621 1621 1422; Sub 1218 1218 1621;
  Sub 1547 1547 1218; Add 1224 1224 1547; Add 1149 1149 1224; Add 1236 1236 1149].
Definition casadi_f0_847 : list instruction := [
  Mul 1236 676 1236; Mul 1218 687 1478; Add 1108 1236 1218; Sub 1268 1268 1108; Add 1470 1470 1268;
  Mul 1636 215 1636; Mul 1268 552 1513; Add 1636 1636 1268; Mul 1367 216 1367; Mul 1268 568 1113;
  Sub 1367 1367 1268; Sub 1636 1636 1367; Add 1470 1470 1636; Add 1082 1082 1470; Mul 1082 2 1082;
  Mul 1470 649 1117; Add 1082 1082 1470; Add 1265 1265 1082; Mul 1281 677 1281; Mul 1082 216 1142;
  Mul 1470 309 1113; Sub 1082 1082 1470; Mul 1470 215 1332; Mul 1636 332 1513; Add 1470 1470 1636;
  Add 1082 1082 1470; Mul 1470 484 1082; Add 1281 1281 1470; Mul 1470 706 1181; Mul 1636 216 1580;
  Mul 1367 349 1113; Sub 1636 1636 1367; Mul 1367 513 1636; Add 1470 1470 1367; Mul 1367 712 1030;
  Mul 1268 215 1580; Mul 1108 349 1513; Add 1268 1268 1108; Mul 1108 530 1268; Add 1367 1367 1108;
  Add 1470 1470 1367; Sub 1281 1281 1470; Mul 1470 711 1644; Mul 1367 706 1628; Mul 1108 519 1636;
  Add 1367 1367 1108; Mul 1108 677 1644; Mul 1611 494 1082; Add 1108 1108 1611; Add 1367 1367 1108;
  Mul 1108 215 1700; Mul 1611 344 1513; Add 1108 1108 1611; Mul 1611 714 1580; Mul 1618 216 1144;
  Mul 1564 328 1113; Sub 1618 1618 1564; Mul 1564 349 1618; Add 1611 1611 1564; Mul 1564 716 1142;
  Mul 1296 216 1296; Mul 1674 335 1113; Sub 1296 1296 1674; Mul 1354 215 1354; Mul 1674 324 1513;
  Add 1354 1354 1674; Add 1296 1296 1354; Mul 1354 309 1296; Add 1564 1564 1354; Add 1611 1611 1564;
  Add 1108 1108 1611; Sub 1367 1367 1108; Mul 1367 156 1367; Mul 1611 494 1367; Add 1470 1470 1611;
  Mul 1611 719 1667; Mul 1564 716 1332; Mul 1354 332 1296; Add 1564 1564 1354; Mul 1354 718 1580;
  Mul 1144 215 1144; Mul 1674 328 1513; Add 1144 1144 1674; Mul 1674 349 1144; Add 1354 1354 1674;
  Add 1564 1564 1354; Mul 1700 216 1700; Mul 1354 344 1113; Sub 1700 1700 1354; Sub 1564 1564 1700;
  Mul 1700 677 1667; Mul 1354 497 1082; Add 1700 1700 1354; Mul 1354 712 1628; Mul 1674 519 1268;
  Add 1354 1354 1674; Add 1700 1700 1354; Sub 1700 1564 1700; Mul 1700 156 1700; Mul 1354 497 1700;
  Add 1611 1611 1354; Sub 1470 1470 1611; Add 1281 1281 1470; Mul 1149 716 1149; Mul 1470 694 1296;
  Add 1611 1149 1470; Mul 1575 718 1575; Mul 1354 661 1144; Add 1575 1575 1354; Sub 1611 1611 1575;
  Mul 1585 714 1585; Mul 1575 638 1618; Add 1585 1585 1575; Sub 1611 1611 1585; Mul 1681 216 1681;
  Mul 1585 582 1113; Sub 1681 1681 1585; Mul 1350 215 1350; Mul 1585 618 1513; Add 1350 1350 1585;
  Sub 1681 1681 1350; Add 1611 1611 1681; Add 1281 1281 1611; Mul 1281 3 1281; Mul 1611 681 1695;
  Add 1281 1281 1611; Add 1265 1265 1281; Mul 1281 715 1200; Mul 1611 327 1094; Mul 1681 405 1302;
  Add 1611 1611 1681; Mul 1681 318 1173; Mul 1350 387 1324; Add 1681 1681 1350; Sub 1611 1611 1681;
  Mul 1681 510 1611; Add 1281 1281 1681; Mul 1681 721 1652; Mul 1350 318 1337; Mul 1585 363 1324;
  Add 1350 1350 1585; Mul 1585 310 1094; Mul 1575 405 1673; Add 1585 1585 1575; Sub 1350 1350 1585;
  Mul 1585 528 1350; Add 1681 1681 1585; Add 1281 1281 1681; Mul 1681 722 1482].
Definition casadi_f0_848 : list instruction := [
  Mul 1585 310 1173; Mul 1575 387 1673; Add 1585 1585 1575; Mul 1575 327 1337; Mul 1354 363 1302;
  Add 1575 1575 1354; Sub 1585 1585 1575; Mul 1575 479 1585; Add 1681 1681 1575; Add 1281 1281 1681;
  Mul 1681 726 1438; Mul 1575 318 1668; Mul 1354 404 1324; Add 1575 1575 1354; Mul 1354 310 1510;
  Mul 1674 399 1673; Add 1354 1354 1674; Sub 1575 1575 1354; Mul 1354 725 1094; Mul 1674 327 1335;
  Mul 1601 383 1302; Add 1674 1674 1601; Mul 1601 318 1593; Mul 1105 379 1324; Add 1601 1601 1105;
  Sub 1674 1674 1601; Mul 1601 405 1674; Add 1354 1354 1601; Mul 1601 727 1337; Mul 1593 310 1593;
  Mul 1105 379 1673; Add 1593 1593 1105; Mul 1105 327 1049; Mul 1053 390 1302; Add 1105 1105 1053;
  Sub 1593 1593 1105; Mul 1105 363 1593; Add 1601 1601 1105; Sub 1354 1354 1601; Add 1575 1575 1354;
  Mul 1354 715 1586; Mul 1601 515 1611; Add 1354 1354 1601; Mul 1601 722 1438; Mul 1105 486 1585;
  Add 1601 1601 1105; Sub 1354 1354 1601; Sub 1354 1575 1354; Mul 1354 723 1354; Mul 1601 486 1354;
  Add 1681 1681 1601; Mul 1601 730 1130; Mul 1510 327 1510; Mul 1105 399 1302; Add 1510 1510 1105;
  Mul 1105 318 1378; Mul 1053 408 1324; Add 1105 1105 1053; Sub 1510 1510 1105; Mul 1105 727 1173;
  Mul 1053 387 1593; Add 1105 1105 1053; Mul 1053 731 1094; Mul 1049 318 1049; Mul 1661 390 1324;
  Add 1049 1049 1661; Mul 1335 310 1335; Mul 1661 383 1673; Add 1335 1335 1661; Sub 1049 1049 1335;
  Mul 1335 405 1049; Add 1053 1053 1335; Sub 1105 1105 1053; Add 1510 1510 1105; Mul 1105 722 1130;
  Mul 1053 489 1585; Add 1105 1105 1053; Mul 1053 721 1586; Mul 1335 515 1350; Add 1053 1053 1335;
  Sub 1105 1105 1053; Sub 1105 1510 1105; Mul 1105 723 1105; Mul 1053 489 1105; Add 1601 1601 1053;
  Sub 1681 1681 1601; Add 1281 1281 1681; Mul 1681 725 1583; Mul 1601 643 1674; Add 1681 1681 1601;
  Mul 1601 731 1380; Mul 1053 665 1049; Add 1601 1601 1053; Mul 1053 727 1224; Mul 1335 701 1593;
  Add 1661 1053 1335; Add 1601 1601 1661; Add 1681 1681 1601; Mul 1601 310 1253; Mul 1661 620 1673;
  Add 1601 1601 1661; Mul 1661 327 1123; Mul 1539 595 1302; Add 1661 1661 1539; Mul 1493 318 1493;
  Mul 1539 395 1324; Add 1230 1493 1539; Add 1661 1661 1230; Add 1601 1601 1661; Sub 1681 1681 1601;
  Add 1281 1281 1681; Mul 1681 4 1281; Mul 1601 720 1454; Add 1681 1681 1601; Add 1265 1265 1681;
  Mul 1681 728 1217; Mul 1601 372 1355; Mul 1661 459 1412; Add 1601 1601 1661; Mul 1661 369 1194;
  Mul 1230 441 1351; Add 1661 1661 1230; Sub 1601 1601 1661; Mul 1661 443 1601; Add 1681 1681 1661;
  Mul 1661 733 1638; Mul 1230 369 1017; Mul 1421 417 1351; Add 1230 1230 1421; Mul 1421 358 1355;
  Mul 1371 459 1393; Add 1421 1421 1371; Sub 1230 1230 1421; Mul 1421 426 1230; Add 1661 1661 1421;
  Add 1681 1681 1661; Mul 1661 734 1676; Mul 1421 358 1194; Mul 1371 441 1393; Add 1421 1421 1371;
  Mul 1371 372 1017; Mul 1698 417 1412; Add 1371 1371 1698; Sub 1421 1421 1371; Mul 1371 478 1421;
  Add 1661 1661 1371; Add 1681 1681 1661; Mul 1661 735 1384; Mul 1371 369 1665].
Definition casadi_f0_849 : list instruction := [
  Mul 1698 458 1351; Add 1371 1371 1698; Mul 1698 358 1486; Mul 1705 451 1393; Add 1698 1698 1705;
  Sub 1371 1371 1698; Mul 1698 736 1355; Mul 1705 372 1642; Mul 1521 437 1412; Add 1705 1705 1521;
  Mul 1521 369 1323; Mul 1518 432 1351; Add 1521 1521 1518; Sub 1705 1705 1521; Mul 1521 459 1705;
  Add 1698 1698 1521; Mul 1521 738 1017; Mul 1323 358 1323; Mul 1518 432 1393; Add 1323 1323 1518;
  Mul 1518 372 1187; Mul 1697 444 1412; Add 1518 1518 1697; Sub 1323 1323 1518; Mul 1518 417 1323;
  Add 1521 1521 1518; Sub 1698 1698 1521; Add 1371 1371 1698; Mul 1698 728 1287; Mul 1521 438 1601;
  Add 1698 1698 1521; Mul 1521 734 1384; Mul 1518 445 1421; Add 1521 1521 1518; Sub 1698 1698 1521;
  Sub 1371 1371 1698; Mul 1371 430 1371; Mul 1698 445 1371; Add 1661 1661 1698; Mul 1698 739 1167;
  Mul 1486 372 1486; Mul 1521 451 1412; Add 1486 1486 1521; Mul 1521 369 1420; Mul 1518 462 1351;
  Add 1521 1521 1518; Sub 1486 1486 1521; Mul 1521 738 1194; Mul 1518 441 1323; Add 1521 1521 1518;
  Mul 1518 741 1355; Mul 1187 369 1187; Mul 1697 444 1351; Add 1187 1187 1697; Mul 1642 358 1642;
  Mul 1697 437 1393; Add 1642 1642 1697; Sub 1187 1187 1642; Mul 1642 459 1187; Add 1518 1518 1642;
  Sub 1521 1521 1518; Add 1486 1486 1521; Mul 1521 734 1167; Mul 1518 434 1421; Add 1521 1521 1518;
  Mul 1518 733 1287; Mul 1642 438 1230; Add 1518 1518 1642; Sub 1521 1521 1518; Sub 1486 1486 1521;
  Mul 1486 430 1486; Mul 1521 434 1486; Add 1698 1698 1521; Sub 1661 1661 1698; Add 1681 1681 1661;
  Mul 1661 736 1620; Mul 1698 648 1705; Add 1661 1661 1698; Mul 1698 741 1447; Mul 1521 669 1187;
  Add 1698 1698 1521; Mul 1521 738 1547; Mul 1518 708 1323; Add 1642 1521 1518; Add 1698 1698 1642;
  Add 1661 1661 1698; Mul 1698 358 1648; Mul 1642 622 1393; Add 1698 1698 1642; Mul 1642 372 1475;
  Mul 1697 608 1412; Add 1642 1642 1697; Mul 1693 369 1693; Mul 1697 449 1351; Add 1501 1693 1697;
  Add 1642 1642 1501; Add 1698 1698 1642; Sub 1661 1661 1698; Add 1681 1681 1661; Mul 1661 5 1681;
  Mul 1698 732 1464; Add 1661 1661 1698; Add 1265 1265 1661; Mul 1661 286 1373; Mul 1698 212 1661;
  Mul 1698 107 1698; Mul 1642 745 1544; Mul 1501 737 1544; Mul 1669 9 1661; Add 1501 1501 1669;
  Mul 1669 743 1485; Mul 1322 286 1592; Mul 1100 8 1322; Add 1669 1669 1100; Sub 1501 1501 1669;
  Mul 1669 269 1501; Mul 1100 81 1669; Mul 1259 746 1498; Mul 1171 743 1544; Mul 1656 9 1322;
  Sub 1171 1171 1656; Mul 1661 8 1661; Mul 1656 737 1485; Sub 1661 1661 1656; Sub 1171 1171 1661;
  Mul 1661 53 1171; Add 1259 1259 1661; Mul 1661 66 1501; Mul 1656 742 1445; Sub 1661 1661 1656;
  Add 1259 1259 1661; Mul 1661 323 1259; Mul 1656 47 1661; Mul 1152 378 1259; Mul 1612 24 1152;
  Mul 1282 752 1701; Mul 1418 66 1171; Mul 1052 746 1445; Sub 1418 1418 1052; Mul 1052 742 1498;
  Mul 1501 53 1501; Add 1052 1052 1501; Sub 1418 1418 1052; Mul 1052 35 1418; Add 1282 1282 1052;
  Mul 1052 378 1282; Mul 1501 31 1052; Sub 1612 1612 1501; Mul 1501 753 1504].
Definition casadi_f0_850 : list instruction := [
  Mul 1514 15 1282; Add 1501 1501 1514; Mul 1514 16 1259; Mul 1035 747 1290; Sub 1514 1514 1035;
  Add 1501 1501 1514; Mul 1501 430 1501; Mul 1514 26 1501; Mul 1282 16 1282; Mul 1035 753 1290;
  Sub 1282 1282 1035; Mul 1035 747 1504; Mul 1259 15 1259; Add 1035 1035 1259; Sub 1282 1282 1035;
  Mul 1282 430 1282; Mul 1035 28 1282; Sub 1514 1514 1035; Mul 1035 16 1501; Mul 1259 755 1290;
  Sub 1035 1035 1259; Mul 1259 757 1504; Mul 1136 15 1282; Add 1259 1259 1136; Sub 1035 1035 1259;
  Mul 1259 25 1035; Mul 1136 16 1282; Mul 1543 757 1290; Sub 1136 1136 1543; Mul 1543 755 1504;
  Mul 1686 15 1501; Add 1543 1543 1686; Add 1136 1136 1543; Mul 1543 32 1136; Sub 1259 1259 1543;
  Add 1259 1514 1259; Add 1612 1612 1259; Mul 1259 19 1612; Mul 1543 751 1266; Sub 1259 1259 1543;
  Mul 1543 763 1701; Mul 1686 19 1418; Mul 1026 752 1266; Sub 1686 1686 1026; Mul 1026 378 1686;
  Mul 1372 31 1026; Mul 1250 380 1152; Sub 1372 1372 1250; Mul 1686 430 1686; Mul 1250 28 1686;
  Mul 1501 433 1501; Sub 1250 1250 1501; Mul 1501 16 1250; Mul 1490 764 1290; Sub 1501 1501 1490;
  Mul 1490 766 1504; Mul 1282 433 1282; Mul 1702 26 1686; Sub 1282 1282 1702; Mul 1702 15 1282;
  Add 1490 1490 1702; Add 1501 1501 1490; Mul 1490 32 1686; Mul 1702 198 1035; Sub 1490 1490 1702;
  Add 1501 1501 1490; Add 1372 1372 1501; Mul 1501 35 1372; Add 1543 1543 1501; Add 1259 1259 1543;
  Add 1152 1152 1035; Mul 1035 48 1152; Add 1543 1052 1136; Mul 1501 19 1543; Mul 1490 765 1266;
  Sub 1501 1501 1490; Mul 1490 768 1701; Add 1702 1026 1686; Mul 1707 35 1702; Add 1490 1490 1707;
  Sub 1501 1501 1490; Mul 1490 55 1501; Sub 1035 1035 1490; Add 1259 1259 1035; Add 1656 1656 1259;
  Mul 1259 66 1656; Mul 1035 749 1445; Sub 1259 1259 1035; Mul 1035 762 1498; Mul 1052 380 1052;
  Mul 1026 24 1026; Sub 1052 1052 1026; Mul 1282 16 1282; Mul 1290 766 1290; Sub 1282 1282 1290;
  Mul 1504 764 1504; Mul 1250 15 1250; Add 1504 1504 1250; Sub 1282 1282 1504; Mul 1136 198 1136;
  Mul 1686 25 1686; Sub 1136 1136 1686; Add 1282 1282 1136; Add 1052 1052 1282; Mul 1282 62 1501;
  Mul 1702 19 1702; Mul 1136 768 1266; Sub 1702 1702 1136; Mul 1136 765 1701; Mul 1543 35 1543;
  Add 1136 1136 1543; Add 1702 1702 1136; Mul 1136 48 1702; Sub 1282 1282 1136; Add 1282 1052 1282;
  Mul 1418 323 1418; Mul 1136 47 1418; Sub 1282 1282 1136; Mul 1136 53 1282; Add 1035 1035 1136;
  Add 1259 1259 1035; Mul 1035 86 1501; Sub 1259 1259 1035; Add 1100 1100 1259; Mul 1259 9 1100;
  Add 1642 1642 1259; Mul 1282 66 1282; Mul 1259 762 1445; Sub 1282 1282 1259; Mul 1259 749 1498;
  Mul 1656 53 1656; Add 1259 1259 1656; Sub 1282 1282 1259; Mul 1259 91 1501; Add 1282 1282 1259;
  Mul 1171 269 1171; Mul 1259 81 1171; Sub 1282 1282 1259; Mul 1259 8 1282; Mul 1656 758 1485;
  Sub 1259 1259 1656; Add 1642 1642 1259; Mul 1501 102 1501; Add 1259 1418 1702; Mul 1656 66 1259;
  Mul 1035 770 1445; Sub 1656 1656 1035; Mul 1035 772 1498; Add 1136 1661 1152].
Definition casadi_f0_851 : list instruction := [
  Mul 1543 53 1136; Add 1035 1035 1543; Add 1656 1656 1035; Add 1035 1171 1656; Mul 1543 8 1035;
  Mul 1686 773 1485; Sub 1543 1543 1686; Mul 1686 776 1544; Mul 1136 66 1136; Mul 1445 772 1445;
  Sub 1136 1136 1445; Mul 1498 770 1498; Mul 1259 53 1259; Add 1498 1498 1259; Sub 1136 1136 1498;
  Add 1498 1669 1136; Mul 1259 9 1498; Add 1686 1686 1259; Sub 1543 1543 1686; Mul 1543 108 1543;
  Sub 1501 1501 1543; Add 1642 1642 1501; Add 1698 1698 1642; Mul 1698 114 1698; Mul 1592 740 1592;
  Sub 1698 1698 1592; Mul 1373 774 1373; Mul 1100 8 1100; Mul 1592 745 1485; Sub 1100 1100 1592;
  Mul 1592 758 1544; Mul 1282 9 1282; Add 1592 1592 1282; Sub 1100 1100 1592; Mul 1544 773 1544;
  Mul 1035 9 1035; Add 1544 1544 1035; Mul 1498 8 1498; Mul 1485 776 1485; Sub 1498 1498 1485;
  Add 1544 1544 1498; Mul 1498 108 1544; Add 1100 1100 1498; Mul 1322 212 1322; Mul 1498 107 1322;
  Sub 1100 1100 1498; Mul 1100 113 1100; Add 1373 1373 1100; Sub 1698 1698 1373; Add 1265 1265 1698;
  Mul 1698 210 1265; Sub 1364 1364 1698; Div 1698 1356 92; Mul 1373 1069 1301; Sub 1698 1698 1373;
  Mul 1373 779 1698; Add 1182 1182 1651; Add 1406 1406 1525; Sub 1182 1182 1406; Add 1114 1114 1275;
  Add 1225 1225 1213; Sub 1114 1114 1225; Add 1288 1288 1114; Sub 1182 1182 1288; Add 1182 1182 1219;
  Add 1151 1151 1165; Add 1654 1654 1540; Sub 1151 1151 1654; Add 1243 1243 1646; Add 1133 1133 1401;
  Add 1243 1243 1133; Add 1517 1517 1480; Add 1062 1062 1559; Sub 1517 1517 1062; Add 1243 1243 1517;
  Sub 1151 1151 1243; Add 1151 1151 1491; Add 1329 1329 1089; Add 1492 1492 1353; Sub 1329 1329 1492;
  Add 1494 1494 1386; Add 1037 1037 1143; Add 1494 1494 1037; Add 1248 1248 1588; Add 1237 1237 1633;
  Sub 1248 1248 1237; Add 1494 1494 1248; Sub 1329 1329 1494; Add 1329 1329 1456; Add 1258 1258 1396;
  Add 1571 1571 1140; Sub 1258 1258 1571; Add 1591 1591 1449; Add 1276 1276 1345; Add 1591 1591 1276;
  Add 1469 1469 1257; Add 1195 1195 1079; Sub 1469 1469 1195; Add 1591 1591 1469; Sub 1258 1258 1591;
  Add 1258 1258 1694; Add 1055 1055 1605; Add 1376 1376 1536; Sub 1055 1055 1376; Add 1110 1110 1502;
  Add 1444 1444 1541; Add 1110 1110 1444; Add 1565 1565 1589; Add 1172 1172 1499; Sub 1565 1565 1172;
  Add 1110 1110 1565; Sub 1055 1055 1110; Add 1055 1055 1093; Add 1258 1258 1055; Add 1329 1329 1258;
  Add 1151 1151 1329; Add 1182 1182 1151; Mul 1182 216 1182; Mul 1093 780 1113; Sub 1182 1182 1093;
  Mul 1093 781 1513; Add 1326 1326 1617; Add 1509 1509 1410; Sub 1326 1326 1509; Sub 1247 1247 1326;
  Add 1675 1675 1347; Add 1552 1552 1455; Sub 1675 1675 1552; Add 1247 1247 1675; Sub 1247 1247 1459;
  Add 1099 1099 1598; Add 1284 1284 1234; Sub 1099 1099 1284; Add 1655 1655 1256; Add 1279 1279 1365;
  Add 1655 1655 1279; Add 1692 1692 1096; Add 1319 1319 1210; Sub 1692 1692 1319; Add 1655 1655 1692;
  Sub 1099 1099 1655; Sub 1099 1099 1473; Add 1226 1226 1358; Add 1255 1255 1283; Sub 1226 1226 1255;
  Add 1622 1622 1305; Add 1227 1227 1484; Add 1622 1622 1227; Add 1019 1019 1419].
Definition casadi_f0_852 : list instruction := [
  Add 1157 1157 1524; Sub 1019 1019 1157; Add 1622 1622 1019; Sub 1226 1226 1622; Sub 1226 1226 1346;
  Add 1538 1538 1677; Add 1042 1042 1463; Sub 1538 1538 1042; Add 1523 1523 1159; Add 1158 1158 1699;
  Add 1523 1523 1158; Add 1429 1429 1659; Add 1527 1527 1471; Sub 1429 1429 1527; Add 1523 1523 1429;
  Sub 1538 1538 1523; Sub 1538 1538 1126; Add 1145 1145 1443; Add 1271 1271 1647; Sub 1145 1145 1271;
  Add 1440 1440 1325; Add 1289 1289 1631; Add 1440 1440 1289; Add 1684 1684 1576; Add 1426 1426 1189;
  Sub 1684 1684 1426; Add 1440 1440 1684; Sub 1145 1145 1440; Sub 1145 1145 1022; Add 1538 1538 1145;
  Add 1226 1226 1538; Add 1099 1099 1226; Add 1247 1247 1099; Mul 1247 215 1247; Add 1093 1093 1247;
  Sub 1182 1182 1093; Sub 1400 1400 1084; Sub 1466 1466 1528; Sub 1132 1132 1515; Sub 1349 1349 1439;
  Sub 1170 1170 1542; Add 1349 1349 1170; Add 1132 1132 1349; Add 1466 1466 1132; Add 1400 1400 1466;
  Mul 1400 540 1400; Mul 1084 625 1291; Sub 1400 1400 1084; Mul 1084 651 1238; Sub 1333 1333 1660;
  Add 1318 1318 1048; Add 1263 1263 1680; Add 1103 1103 1310; Add 1554 1554 1124; Add 1103 1103 1554;
  Add 1263 1263 1103; Add 1318 1318 1263; Add 1333 1333 1318; Mul 1333 544 1333; Add 1084 1084 1333;
  Add 1400 1400 1084; Sub 1182 1182 1400; Mul 1182 0 1182; Mul 1400 23 1303; Add 1182 1182 1400;
  Mul 1229 508 1229; Mul 1400 534 1650; Add 1229 1229 1400; Add 1277 1277 1546; Mul 1643 482 1643;
  Mul 1156 511 1156; Add 1643 1643 1156; Sub 1277 1277 1643; Add 1111 1111 1277; Mul 1034 490 1034;
  Mul 1104 514 1104; Add 1034 1034 1104; Sub 1111 1111 1034; Add 1649 1649 1111; Mul 1417 498 1417;
  Mul 1696 518 1696; Add 1417 1417 1696; Sub 1649 1649 1417; Add 1129 1129 1649; Mul 1148 522 1148;
  Mul 1116 506 1116; Sub 1148 1148 1116; Sub 1129 1129 1148; Mul 1148 526 1129; Mul 1116 784 1424;
  Add 1148 1148 1116; Add 1595 1595 1664; Mul 1394 1304 1394; Add 1581 1581 1394; Mul 1581 20 1581;
  Add 1595 1595 1581; Add 1627 1627 1595; Mul 1199 1153 1199; Add 1313 1313 1199; Mul 1313 37 1313;
  Add 1627 1627 1313; Add 1244 1244 1627; Mul 1391 1212 1391; Add 1134 1134 1391; Mul 1134 80 1134;
  Add 1244 1244 1134; Add 1261 1261 1244; Mul 1088 1293 1088; Add 1632 1632 1088; Mul 1632 100 1632;
  Sub 1261 1261 1632; Mul 1261 536 1261; Mul 1632 496 1176; Add 1261 1261 1632; Add 1148 1148 1261;
  Sub 1229 1229 1148; Mul 1148 546 1047; Mul 1261 538 1560; Add 1148 1148 1261; Mul 1261 791 1369;
  Mul 1215 215 1215; Mul 1632 222 1513; Add 1215 1215 1632; Mul 1246 216 1246; Mul 1632 229 1113;
  Sub 1246 1246 1632; Sub 1215 1215 1246; Mul 1246 540 1193; Mul 1632 227 1291; Sub 1246 1246 1632;
  Mul 1632 544 1278; Mul 1134 219 1238; Add 1632 1632 1134; Sub 1246 1246 1632; Add 1215 1215 1246;
  Mul 1246 526 1678; Mul 1632 543 1424; Add 1246 1246 1632; Mul 1369 536 1369; Mul 1632 537 1176;
  Add 1369 1369 1632; Sub 1246 1246 1369; Sub 1246 1215 1246; Mul 1246 141 1246; Mul 1369 537 1246;
  Add 1261 1261 1369; Sub 1148 1148 1261; Add 1229 1229 1148; Mul 1148 556 1594].
Definition casadi_f0_853 : list instruction := [
  Mul 1468 560 1468; Add 1261 1148 1468; Sub 1529 1261 1529; Sub 1252 1032 1252; Sub 1507 1180 1507;
  Add 1252 1252 1507; Add 1468 1468 1148; Sub 1359 1359 1468; Add 1252 1252 1359; Sub 1529 1529 1252;
  Mul 1252 570 1548; Mul 1240 574 1240; Add 1359 1252 1240; Sub 1704 1359 1704; Sub 1442 1442 1574;
  Sub 1533 1533 1163; Add 1442 1442 1533; Add 1240 1240 1252; Sub 1300 1300 1240; Add 1442 1442 1300;
  Sub 1704 1704 1442; Mul 1442 584 1021; Mul 1118 588 1118; Add 1300 1442 1118; Sub 1535 1300 1535;
  Sub 1606 1606 1685; Sub 1311 1311 1402; Add 1606 1606 1311; Add 1118 1118 1442; Sub 1441 1441 1118;
  Add 1606 1606 1441; Sub 1535 1535 1606; Mul 1606 597 1131; Mul 1270 601 1270; Add 1441 1606 1270;
  Sub 1432 1441 1432; Sub 1431 1431 1450; Sub 1604 1604 1125; Add 1431 1431 1604; Add 1270 1270 1606;
  Sub 1166 1166 1270; Add 1431 1431 1166; Sub 1432 1432 1431; Mul 1431 610 1703; Mul 1348 614 1348;
  Add 1166 1431 1348; Sub 1448 1166 1448; Sub 1316 1316 1562; Sub 1671 1671 1186; Add 1316 1316 1671;
  Add 1348 1348 1431; Sub 1453 1453 1348; Add 1316 1316 1453; Sub 1448 1448 1316; Add 1432 1432 1448;
  Add 1535 1535 1432; Add 1704 1704 1535; Add 1529 1529 1704; Mul 1529 216 1529; Mul 1316 251 1113;
  Sub 1529 1529 1316; Mul 1316 230 1251; Mul 1602 225 1602; Add 1453 1316 1602; Mul 1135 231 1135;
  Mul 1431 223 1662; Sub 1135 1135 1431; Sub 1453 1453 1135; Mul 1292 560 1292; Mul 1431 553 1594;
  Add 1671 1292 1431; Mul 1641 244 1641; Mul 1162 248 1162; Add 1186 1641 1162; Sub 1671 1671 1186;
  Sub 1453 1453 1671; Mul 1594 558 1594; Mul 1086 560 1086; Add 1671 1594 1086; Mul 1092 243 1092;
  Mul 1368 249 1368; Add 1186 1092 1368; Sub 1671 1671 1186; Add 1453 1453 1671; Mul 1573 219 1573;
  Mul 1278 239 1278; Add 1573 1573 1278; Mul 1109 227 1109; Mul 1193 246 1193; Add 1109 1109 1193;
  Add 1573 1573 1109; Mul 1411 467 1411; Mul 1203 525 1203; Sub 1411 1411 1203; Add 1573 1573 1411;
  Mul 1537 231 1537; Mul 1411 559 1662; Sub 1537 1537 1411; Mul 1411 616 1251; Mul 1209 225 1209;
  Add 1411 1411 1209; Add 1537 1537 1411; Add 1573 1573 1537; Mul 1573 213 1573; Sub 1453 1453 1573;
  Mul 1537 572 1548; Mul 1672 574 1672; Add 1411 1537 1672; Mul 1506 284 1506; Mul 1413 258 1413;
  Add 1209 1506 1413; Sub 1411 1411 1209; Mul 1209 297 1462; Mul 1203 271 1495; Add 1109 1209 1203;
  Mul 1193 282 1188; Mul 1278 300 1285; Add 1671 1193 1278; Add 1109 1109 1671; Mul 1683 574 1683;
  Mul 1548 567 1548; Add 1671 1683 1548; Mul 1663 279 1663; Mul 1370 276 1370; Add 1186 1663 1370;
  Sub 1671 1671 1186; Add 1109 1109 1671; Sub 1411 1411 1109; Mul 1549 255 1549; Mul 1109 280 1436;
  Add 1549 1549 1109; Mul 1020 278 1020; Mul 1109 266 1360; Add 1020 1020 1109; Add 1549 1549 1020;
  Mul 1689 296 1689; Mul 1556 472 1556; Add 1689 1689 1556; Add 1549 1549 1689; Mul 1689 573 1285;
  Mul 1223 282 1223; Add 1689 1689 1223; Mul 1223 617 1462; Mul 1074 271 1074; Add 1223 1223 1074;
  Sub 1689 1689 1223; Add 1549 1549 1689; Mul 1549 213 1549; Sub 1411 1411 1549].
Definition casadi_f0_854 : list instruction := [
  Mul 1689 586 1021; Mul 1487 588 1487; Add 1223 1689 1487; Mul 1343 338 1343; Mul 1018 312 1018;
  Add 1074 1343 1018; Sub 1223 1223 1074; Mul 1074 351 1341; Mul 1556 325 1403; Add 1020 1074 1556;
  Mul 1109 336 1488; Mul 1671 354 1508; Add 1186 1109 1671; Add 1020 1020 1186; Mul 1185 588 1185;
  Mul 1021 581 1021; Add 1186 1185 1021; Mul 1087 333 1087; Mul 1091 330 1091; Add 1562 1087 1091;
  Sub 1186 1186 1562; Add 1020 1020 1186; Sub 1223 1223 1020; Mul 1383 309 1383; Mul 1020 334 1142;
  Add 1383 1383 1020; Mul 1016 332 1016; Mul 1020 320 1332; Add 1016 1016 1020; Add 1383 1383 1016;
  Mul 1211 349 1211; Mul 1580 474 1580; Add 1211 1211 1580; Add 1383 1383 1211; Mul 1211 587 1508;
  Mul 1558 336 1558; Add 1211 1211 1558; Mul 1558 619 1341; Mul 1425 325 1425; Add 1558 1558 1425;
  Sub 1211 1211 1558; Add 1383 1383 1211; Mul 1383 213 1383; Sub 1223 1223 1383; Mul 1211 599 1131;
  Mul 1297 601 1297; Add 1558 1211 1297; Mul 1139 393 1139; Mul 1497 366 1497; Add 1425 1139 1497;
  Sub 1558 1558 1425; Mul 1425 406 1141; Mul 1580 381 1691; Add 1016 1425 1580; Mul 1020 391 1584;
  Mul 1186 409 1603; Add 1562 1020 1186; Add 1016 1016 1562; Mul 1119 601 1119; Mul 1131 594 1131;
  Add 1562 1119 1131; Mul 1706 388 1706; Mul 1254 385 1254; Add 1606 1706 1254; Sub 1562 1562 1606;
  Add 1016 1016 1562; Sub 1558 1558 1016; Mul 1457 363 1457; Mul 1016 389 1337; Add 1457 1457 1016;
  Mul 1192 387 1192; Mul 1016 374 1173; Add 1192 1192 1016; Add 1457 1457 1192; Mul 1433 405 1433;
  Mul 1094 476 1094; Add 1433 1433 1094; Add 1457 1457 1433; Mul 1433 600 1603; Mul 1679 391 1679;
  Add 1433 1433 1679; Mul 1679 621 1141; Mul 1363 381 1363; Add 1679 1679 1363; Sub 1433 1433 1679;
  Add 1457 1457 1433; Mul 1457 213 1457; Sub 1558 1558 1457; Mul 1433 612 1703; Mul 1467 614 1467;
  Add 1679 1433 1467; Mul 1427 447 1427; Mul 1312 420 1312; Add 1363 1427 1312; Sub 1679 1679 1363;
  Mul 1363 460 1167; Mul 1094 434 1083; Add 1192 1363 1094; Mul 1016 445 1570; Mul 1562 463 1384;
  Add 1606 1016 1562; Add 1192 1192 1606; Mul 1451 614 1451; Mul 1703 607 1703; Add 1606 1451 1703;
  Mul 1038 442 1038; Mul 1657 439 1657; Add 1604 1038 1657; Sub 1606 1606 1604; Add 1192 1192 1606;
  Sub 1679 1679 1192; Mul 1192 417 1217; Mul 1606 443 1017; Add 1192 1192 1606; Mul 1606 441 1638;
  Mul 1604 426 1194; Add 1606 1606 1604; Add 1192 1192 1606; Mul 1606 459 1676; Mul 1355 478 1355;
  Add 1606 1606 1355; Add 1192 1192 1606; Mul 1606 611 1384; Mul 1503 445 1503; Add 1606 1606 1503;
  Mul 1503 623 1167; Mul 1239 434 1239; Add 1503 1503 1239; Sub 1606 1606 1503; Add 1192 1192 1606;
  Mul 1192 213 1192; Sub 1679 1679 1192; Add 1558 1558 1679; Add 1223 1223 1558; Add 1411 1411 1223;
  Add 1453 1453 1411; Mul 1453 215 1453; Mul 1606 470 1513; Add 1453 1453 1606; Sub 1529 1529 1453;
  Mul 1453 225 1198; Mul 1606 624 1251; Add 1503 1453 1606; Mul 1239 231 1474; Mul 1355 650 1662;
  Sub 1239 1239 1355; Sub 1503 1503 1239; Mul 1327 213 1327; Add 1355 1503 1327].
Definition casadi_f0_855 : list instruction := [
  Mul 1285 655 1285; Mul 1520 282 1520; Add 1604 1285 1520; Sub 1604 1169 1604; Mul 1653 271 1653;
  Mul 1462 629 1462; Add 1125 1653 1462; Add 1604 1604 1125; Mul 1362 213 1362; Sub 1125 1604 1362;
  Mul 1508 659 1508; Mul 1465 336 1465; Add 1450 1508 1465; Sub 1450 1196 1450; Mul 1434 325 1434;
  Mul 1341 634 1341; Add 1442 1434 1341; Add 1450 1450 1442; Mul 1409 213 1409; Sub 1442 1450 1409;
  Mul 1603 663 1603; Mul 1500 391 1500; Add 1311 1603 1500; Sub 1311 1206 1311; Mul 1075 381 1075;
  Mul 1141 639 1141; Add 1402 1075 1141; Add 1311 1311 1402; Mul 1458 213 1458; Sub 1402 1311 1458;
  Mul 1685 667 1384; Mul 1645 445 1645; Add 1252 1685 1645; Sub 1252 1107 1252; Mul 1071 434 1071;
  Mul 1533 644 1167; Add 1163 1071 1533; Add 1252 1252 1163; Mul 1081 213 1081; Sub 1163 1252 1081;
  Add 1402 1402 1163; Add 1442 1442 1402; Add 1125 1125 1442; Add 1355 1355 1125; Mul 1355 540 1355;
  Mul 1574 250 1291; Sub 1355 1355 1574; Mul 1474 225 1474; Mul 1251 650 1251; Add 1574 1474 1251;
  Mul 1198 231 1198; Mul 1662 624 1662; Sub 1198 1198 1662; Add 1251 1251 1474; Mul 1610 242 1610;
  Mul 1317 626 1317; Sub 1610 1610 1317; Add 1317 1251 1610; Add 1474 1198 1317; Sub 1474 1574 1474;
  Add 1574 1574 1610; Add 1198 1198 1574; Sub 1251 1251 1198; Sub 1474 1474 1251; Sub 1204 1204 1551;
  Sub 1682 1682 1477; Sub 1204 1204 1682; Sub 1496 1496 1550; Sub 1392 1392 1228; Sub 1496 1496 1392;
  Sub 1267 1267 1398; Sub 1339 1339 1512; Sub 1267 1267 1339; Sub 1272 1272 1320; Sub 1579 1579 1621;
  Sub 1272 1272 1579; Add 1267 1267 1272; Add 1496 1496 1267; Add 1204 1204 1496; Add 1474 1474 1204;
  Mul 1579 544 1474; Mul 1621 806 1238; Add 1579 1579 1621; Add 1355 1355 1579; Sub 1529 1529 1355;
  Add 1229 1229 1529; Mul 1229 216 1229; Mul 1529 652 1113; Sub 1229 1229 1529; Mul 1529 804 1513;
  Mul 1557 508 1557; Mul 1355 521 1650; Add 1557 1557 1355; Add 1415 1415 1394; Mul 1415 20 1415;
  Add 1640 1640 1121; Sub 1415 1415 1640; Sub 1489 1415 1489; Add 1567 1567 1199; Mul 1567 37 1567;
  Add 1489 1489 1567; Sub 1242 1489 1242; Add 1522 1522 1391; Mul 1522 80 1522; Add 1242 1242 1522;
  Add 1688 1688 1242; Sub 1216 1216 1088; Mul 1216 100 1216; Add 1688 1688 1216; Mul 1688 526 1688;
  Mul 1216 499 1424; Add 1688 1688 1216; Mul 1129 536 1129; Mul 1216 784 1176; Add 1129 1129 1216;
  Add 1688 1688 1129; Sub 1557 1557 1688; Mul 1678 791 1678; Mul 1246 543 1246; Add 1678 1678 1246;
  Mul 1047 539 1047; Mul 1246 538 1382; Add 1047 1047 1246; Sub 1678 1678 1047; Add 1557 1557 1678;
  Add 1602 1602 1316; Sub 1602 1602 1135; Add 1368 1368 1092; Add 1086 1086 1594; Sub 1368 1368 1086;
  Sub 1602 1602 1368; Add 1162 1162 1641; Add 1431 1431 1292; Sub 1162 1162 1431; Add 1602 1602 1162;
  Add 1602 1602 1573; Add 1370 1370 1663; Add 1548 1548 1683; Sub 1370 1370 1548; Add 1278 1278 1193;
  Add 1203 1203 1209; Add 1278 1278 1203; Add 1413 1413 1506; Add 1672 1672 1537; Sub 1413 1413 1672;
  Add 1278 1278 1413; Sub 1370 1370 1278; Add 1370 1370 1549; Add 1091 1091 1087].
Definition casadi_f0_856 : list instruction := [
  Add 1021 1021 1185; Sub 1091 1091 1021; Add 1671 1671 1109; Add 1556 1556 1074; Add 1671 1671 1556;
  Add 1018 1018 1343; Add 1487 1487 1689; Sub 1018 1018 1487; Add 1671 1671 1018; Sub 1091 1091 1671;
  Add 1091 1091 1383; Add 1254 1254 1706; Add 1131 1131 1119; Sub 1254 1254 1131; Add 1186 1186 1020;
  Add 1580 1580 1425; Add 1186 1186 1580; Add 1497 1497 1139; Add 1297 1297 1211; Sub 1497 1497 1297;
  Add 1186 1186 1497; Sub 1254 1254 1186; Add 1254 1254 1457; Add 1657 1657 1038; Add 1703 1703 1451;
  Sub 1657 1657 1703; Add 1562 1562 1016; Add 1094 1094 1363; Add 1562 1562 1094; Add 1312 1312 1427;
  Add 1467 1467 1433; Sub 1312 1312 1467; Add 1562 1562 1312; Sub 1657 1657 1562; Add 1657 1657 1192;
  Add 1254 1254 1657; Add 1091 1091 1254; Add 1370 1370 1091; Add 1602 1602 1370; Mul 1602 216 1602;
  Mul 1192 507 1113; Sub 1602 1602 1192; Add 1180 1180 1032; Sub 1468 1468 1175; Sub 1180 1180 1468;
  Sub 1295 1295 1261; Add 1180 1180 1295; Add 1340 1340 1483; Sub 1240 1240 1190; Sub 1340 1340 1240;
  Sub 1235 1235 1359; Add 1340 1340 1235; Add 1568 1568 1479; Sub 1118 1118 1625; Sub 1568 1568 1118;
  Sub 1526 1526 1300; Add 1568 1568 1526; Add 1315 1315 1572; Sub 1270 1270 1274; Sub 1315 1315 1270;
  Sub 1587 1587 1441; Add 1315 1315 1587; Add 1102 1102 1690; Sub 1348 1348 1389; Sub 1102 1102 1348;
  Sub 1590 1590 1166; Add 1102 1102 1590; Add 1315 1315 1102; Add 1568 1568 1315; Add 1340 1340 1568;
  Add 1180 1180 1340; Mul 1180 215 1180; Mul 1590 226 1513; Add 1180 1180 1590; Sub 1602 1602 1180;
  Sub 1574 1574 1317; Sub 1608 1608 1416; Sub 1060 1060 1624; Sub 1161 1161 1245; Sub 1422 1422 1112;
  Add 1161 1161 1422; Add 1060 1060 1161; Add 1608 1608 1060; Add 1574 1574 1608; Mul 1112 540 1574;
  Mul 1245 805 1291; Sub 1112 1112 1245; Add 1606 1606 1453; Sub 1239 1239 1606; Sub 1606 1239 1327;
  Add 1520 1520 1285; Add 1462 1462 1653; Add 1169 1169 1462; Sub 1520 1520 1169; Add 1169 1520 1362;
  Add 1465 1465 1508; Add 1341 1341 1434; Add 1196 1196 1341; Sub 1465 1465 1196; Add 1196 1465 1409;
  Add 1500 1500 1603; Add 1141 1141 1075; Add 1206 1206 1141; Sub 1500 1500 1206; Add 1206 1500 1458;
  Add 1645 1645 1685; Add 1533 1533 1071; Add 1107 1107 1533; Sub 1645 1645 1107; Add 1107 1645 1081;
  Add 1206 1206 1107; Add 1196 1196 1206; Add 1169 1169 1196; Add 1606 1606 1169; Mul 1606 544 1606;
  Mul 1533 693 1238; Add 1606 1606 1533; Add 1112 1112 1606; Sub 1602 1602 1112; Add 1557 1557 1602;
  Mul 1557 215 1557; Add 1529 1529 1557; Sub 1229 1229 1529; Sub 1503 1503 1327; Add 1604 1604 1362;
  Add 1450 1450 1409; Add 1311 1311 1458; Add 1252 1252 1081; Add 1311 1311 1252; Add 1450 1450 1311;
  Add 1604 1604 1450; Add 1503 1503 1604; Mul 1503 216 1503; Mul 1529 305 1113; Sub 1503 1503 1529;
  Mul 1574 215 1574; Mul 1529 805 1513; Add 1574 1574 1529; Sub 1503 1503 1574; Add 1560 1560 1503;
  Mul 1560 540 1560; Mul 1503 307 1291; Sub 1560 1560 1503; Mul 1503 360 1238; Mul 1474 216 1474;
  Mul 1574 806 1113; Sub 1474 1474 1574; Add 1239 1239 1327; Sub 1520 1520 1362].
Definition casadi_f0_857 : list instruction := [
  Sub 1465 1465 1409; Sub 1500 1500 1458; Sub 1645 1645 1081; Add 1500 1500 1645; Add 1465 1465 1500;
  Add 1520 1520 1465; Add 1239 1239 1520; Mul 1239 215 1239; Mul 1081 700 1513; Add 1239 1239 1081;
  Sub 1474 1474 1239; Add 1382 1382 1474; Mul 1382 544 1382; Add 1503 1503 1382; Add 1560 1560 1503;
  Sub 1229 1229 1560; Mul 1229 1 1229; Mul 1560 469 1208; Add 1229 1229 1560; Add 1182 1182 1229;
  Mul 1229 602 1649; Mul 1560 783 1207; Add 1229 1229 1560; Mul 1560 670 1244; Mul 1503 488 1137;
  Add 1560 1560 1503; Add 1229 1229 1560; Mul 1560 671 1232; Mul 1503 532 1098; Add 1560 1560 1503;
  Sub 1229 1229 1560; Mul 1560 679 1461; Mul 1503 523 1532; Add 1560 1560 1503; Mul 1503 796 1179;
  Mul 1436 680 1436; Mul 1382 255 1097; Add 1436 1436 1382; Mul 1360 674 1360; Mul 1382 278 1435;
  Sub 1360 1360 1382; Sub 1436 1436 1360; Mul 1077 216 1077; Mul 1360 294 1113; Sub 1077 1077 1360;
  Mul 1430 215 1430; Mul 1360 299 1513; Add 1430 1430 1360; Add 1077 1077 1430; Sub 1436 1436 1077;
  Mul 1077 670 1179; Mul 1430 502 1137; Add 1077 1077 1430; Mul 1430 602 1388; Mul 1360 505 1207;
  Add 1430 1430 1360; Sub 1077 1077 1430; Sub 1077 1436 1077; Mul 1077 672 1077; Mul 1430 502 1077;
  Add 1503 1503 1430; Sub 1560 1560 1503; Add 1229 1229 1560; Mul 1560 674 1125; Mul 1503 794 1435;
  Sub 1560 1560 1503; Mul 1503 680 1204; Mul 1430 689 1097; Add 1360 1503 1430; Add 1191 1191 1338;
  Add 1168 1168 1177; Add 1495 1495 1168; Sub 1191 1191 1495; Add 1495 1191 1048; Add 1147 1147 1423;
  Add 1563 1563 1090; Add 1403 1403 1563; Sub 1147 1147 1403; Add 1403 1147 1680; Add 1231 1231 1597;
  Add 1566 1566 1051; Add 1691 1691 1566; Sub 1231 1231 1691; Add 1691 1231 1310; Add 1687 1687 1511;
  Add 1634 1634 1545; Add 1083 1083 1634; Sub 1687 1687 1083; Add 1083 1687 1124; Add 1691 1691 1083;
  Add 1403 1403 1691; Add 1495 1495 1403; Mul 1495 676 1495; Mul 1634 410 1478; Add 1495 1495 1634;
  Sub 1360 1360 1495; Add 1560 1560 1360; Mul 1360 215 1411; Mul 1495 461 1513; Add 1360 1360 1495;
  Mul 1704 216 1704; Mul 1495 277 1113; Sub 1704 1704 1495; Sub 1360 1360 1704; Add 1560 1560 1360;
  Add 1229 1229 1560; Mul 1229 216 1229; Mul 1560 707 1113; Sub 1229 1229 1560; Mul 1560 793 1513;
  Mul 1360 602 1242; Mul 1495 491 1207; Add 1360 1360 1495; Mul 1495 670 1649; Mul 1634 783 1137;
  Add 1495 1495 1634; Add 1360 1360 1495; Mul 1495 671 1122; Mul 1634 517 1098; Add 1495 1495 1634;
  Sub 1360 1360 1495; Mul 1495 796 1388; Mul 1634 505 1077; Add 1495 1495 1634; Mul 1634 675 1461;
  Mul 1545 523 1666; Add 1634 1634 1545; Sub 1495 1495 1634; Add 1360 1360 1495; Mul 1495 674 1608;
  Mul 1634 682 1435; Sub 1495 1495 1634; Mul 1634 680 1169; Mul 1545 808 1097; Add 1634 1634 1545;
  Add 1154 1154 1607; Sub 1188 1188 1154; Add 1241 1241 1578; Add 1188 1188 1241; Sub 1241 1188 1528;
  Add 1670 1670 1174; Sub 1488 1488 1670; Add 1308 1308 1639; Add 1488 1488 1308; Sub 1308 1488 1515;
  Add 1233 1233 1375; Sub 1584 1584 1233; Add 1505 1505 1036; Add 1584 1584 1505].
Definition casadi_f0_858 : list instruction := [
  Sub 1505 1584 1439; Add 1407 1407 1658; Sub 1570 1570 1407; Add 1024 1024 1460; Add 1570 1570 1024;
  Sub 1024 1570 1542; Add 1505 1505 1024; Add 1308 1308 1505; Add 1241 1241 1308; Mul 1241 676 1241;
  Mul 1460 301 1478; Add 1241 1241 1460; Sub 1634 1634 1241; Add 1634 1495 1634; Mul 1340 215 1340;
  Mul 1241 303 1513; Add 1460 1340 1241; Mul 1407 216 1370; Mul 1658 468 1113; Sub 1407 1407 1658;
  Sub 1460 1460 1407; Add 1634 1634 1460; Add 1360 1360 1634; Mul 1360 215 1360; Add 1560 1560 1360;
  Sub 1360 1229 1560; Mul 1608 215 1608; Mul 1634 682 1513; Add 1460 1608 1634; Mul 1407 216 1604;
  Mul 1658 792 1113; Sub 1407 1407 1658; Sub 1460 1460 1407; Add 1532 1532 1460; Mul 1460 540 1532;
  Mul 1407 233 1291; Sub 1460 1460 1407; Mul 1407 789 1238; Mul 1658 215 1520; Mul 1036 686 1513;
  Add 1658 1658 1036; Mul 1204 216 1204; Mul 1036 689 1113; Sub 1204 1204 1036; Sub 1658 1658 1204;
  Add 1666 1666 1658; Mul 1658 544 1666; Add 1407 1407 1658; Add 1460 1460 1407; Sub 1360 1360 1460;
  Mul 1360 2 1360; Mul 1460 285 1117; Add 1360 1360 1460; Add 1182 1182 1360; Mul 1360 677 1030;
  Mul 1460 530 1082; Add 1360 1360 1460; Mul 1460 706 1111; Mul 1407 782 1636; Add 1460 1460 1407;
  Mul 1407 712 1627; Mul 1658 481 1268; Add 1407 1407 1658; Add 1460 1460 1407; Sub 1360 1360 1460;
  Mul 1460 719 1628; Mul 1407 519 1700; Add 1460 1460 1407; Mul 1407 709 1644; Mul 1481 216 1481;
  Mul 1658 348 1113; Sub 1481 1481 1658; Mul 1146 215 1146; Mul 1658 353 1513; Add 1146 1146 1658;
  Add 1481 1481 1146; Mul 1332 714 1332; Mul 1146 332 1618; Add 1332 1332 1146; Mul 1142 718 1142;
  Mul 1146 309 1144; Add 1142 1142 1146; Sub 1332 1332 1142; Add 1481 1481 1332; Mul 1332 706 1667;
  Mul 1142 497 1636; Add 1332 1332 1142; Mul 1142 712 1644; Mul 1146 494 1268; Add 1142 1142 1146;
  Sub 1332 1332 1142; Sub 1332 1481 1332; Mul 1332 156 1332; Mul 1142 494 1332; Add 1407 1407 1142;
  Sub 1460 1460 1407; Add 1360 1360 1460; Mul 1460 716 1403; Mul 1407 403 1296; Add 1460 1460 1407;
  Mul 1407 718 1496; Mul 1142 696 1144; Add 1146 1407 1142; Sub 1460 1460 1146; Mul 1146 714 1442;
  Mul 1658 797 1618; Add 1146 1146 1658; Sub 1460 1460 1146; Mul 1535 216 1535; Mul 1146 331 1113;
  Sub 1535 1535 1146; Mul 1146 215 1223; Mul 1658 414 1513; Add 1146 1146 1658; Sub 1146 1535 1146;
  Add 1460 1460 1146; Add 1360 1360 1460; Mul 1360 216 1360; Mul 1460 790 1113; Sub 1360 1360 1460;
  Mul 1460 704 1513; Mul 1146 677 1181; Mul 1658 513 1082; Add 1146 1146 1658; Mul 1658 706 1489;
  Mul 1036 483 1636; Add 1658 1658 1036; Mul 1036 712 1111; Mul 1233 782 1268; Add 1036 1036 1233;
  Add 1658 1658 1036; Sub 1146 1146 1658; Mul 1658 709 1667; Mul 1036 497 1332; Add 1658 1658 1036;
  Mul 1036 711 1628; Mul 1233 519 1367; Add 1036 1036 1233; Sub 1658 1658 1036; Add 1146 1146 1658;
  Mul 1658 716 1308; Mul 1036 293 1296; Add 1658 1658 1036; Mul 1036 718 1196; Mul 1233 415 1144;
  Add 1036 1036 1233; Sub 1658 1658 1036; Mul 1036 714 1060; Mul 1233 685 1618].
Definition casadi_f0_859 : list instruction := [
  Add 1375 1036 1233; Sub 1658 1658 1375; Mul 1375 216 1091; Mul 1639 416 1113; Sub 1375 1375 1639;
  Mul 1568 215 1568; Mul 1639 357 1513; Add 1670 1568 1639; Sub 1375 1375 1670; Add 1658 1658 1375;
  Add 1146 1146 1658; Mul 1146 215 1146; Add 1460 1460 1146; Sub 1146 1360 1460; Mul 1658 216 1450;
  Mul 1375 795 1113; Sub 1658 1658 1375; Mul 1060 215 1060; Mul 1375 685 1513; Add 1670 1060 1375;
  Sub 1658 1658 1670; Add 1700 1700 1658; Mul 1658 540 1700; Mul 1670 697 1291; Sub 1658 1658 1670;
  Mul 1670 695 1238; Mul 1496 216 1496; Mul 1174 696 1113; Sub 1496 1496 1174; Mul 1174 215 1465;
  Mul 1578 448 1513; Add 1174 1174 1578; Sub 1174 1496 1174; Add 1367 1367 1174; Mul 1174 544 1367;
  Add 1670 1670 1174; Add 1658 1658 1670; Sub 1658 1146 1658; Mul 1658 3 1658; Mul 1670 691 1695;
  Add 1658 1658 1670; Add 1182 1182 1658; Mul 1658 715 1277; Mul 1670 606 1611; Add 1658 1658 1670;
  Mul 1670 721 1595; Mul 1174 786 1350; Add 1670 1670 1174; Add 1658 1658 1670; Mul 1670 722 1652;
  Mul 1174 528 1585; Add 1670 1670 1174; Add 1658 1658 1670; Mul 1670 730 1586; Mul 1174 515 1105;
  Add 1670 1670 1174; Mul 1174 683 1438; Mul 1378 310 1378; Mul 1578 408 1673; Add 1378 1378 1578;
  Mul 1668 327 1668; Mul 1578 404 1302; Add 1668 1668 1578; Sub 1378 1378 1668; Mul 1337 731 1337;
  Mul 1668 363 1049; Add 1337 1337 1668; Mul 1173 725 1173; Mul 1668 387 1674; Add 1173 1173 1668;
  Sub 1337 1337 1173; Add 1378 1378 1337; Mul 1337 721 1438; Mul 1173 486 1350; Add 1337 1337 1173;
  Mul 1173 715 1130; Mul 1668 489 1611; Add 1173 1173 1668; Sub 1337 1337 1173; Sub 1337 1378 1337;
  Mul 1337 723 1337; Mul 1173 486 1337; Add 1174 1174 1173; Sub 1670 1670 1174; Add 1658 1658 1670;
  Mul 1670 725 1402; Mul 1174 800 1674; Add 1670 1670 1174; Mul 1174 731 1267; Mul 1173 703 1049;
  Add 1668 1174 1173; Mul 1578 727 1691; Mul 1154 306 1593; Add 1578 1578 1154; Add 1668 1668 1578;
  Add 1670 1670 1668; Mul 1668 310 1558; Mul 1578 361 1673; Add 1668 1668 1578; Mul 1432 327 1432;
  Mul 1578 386 1302; Add 1154 1432 1578; Mul 1607 318 1258; Mul 1545 59 1324; Add 1607 1607 1545;
  Add 1154 1154 1607; Add 1668 1668 1154; Sub 1670 1670 1668; Add 1658 1658 1670; Mul 1670 216 1658;
  Mul 1668 690 1113; Sub 1670 1670 1668; Mul 1668 807 1513; Mul 1154 715 1415; Mul 1607 705 1611;
  Add 1154 1154 1607; Mul 1607 721 1277; Mul 1545 606 1350; Add 1607 1607 1545; Add 1154 1154 1607;
  Mul 1607 722 1200; Mul 1545 510 1585; Add 1607 1607 1545; Add 1154 1154 1607; Mul 1607 683 1130;
  Mul 1545 489 1337; Add 1607 1607 1545; Mul 1545 726 1586; Mul 1511 515 1354; Add 1545 1545 1511;
  Sub 1607 1607 1545; Add 1154 1154 1607; Mul 1607 725 1161; Mul 1545 692 1674; Add 1511 1607 1545;
  Mul 1566 731 1206; Mul 1051 465 1049; Add 1566 1566 1051; Mul 1051 727 1505; Mul 1597 785 1593;
  Add 1051 1051 1597; Add 1566 1566 1051; Add 1511 1511 1566; Mul 1315 310 1315; Mul 1566 412 1673;
  Add 1051 1315 1566; Mul 1597 327 1254; Mul 1563 407 1302; Add 1597 1597 1563].
Definition casadi_f0_860 : list instruction := [
  Mul 1563 318 1538; Mul 1090 580 1324; Add 1563 1563 1090; Add 1597 1597 1563; Add 1051 1051 1597;
  Sub 1511 1511 1051; Add 1154 1154 1511; Mul 1511 215 1154; Add 1668 1668 1511; Sub 1511 1670 1668;
  Mul 1161 310 1161; Mul 1051 692 1673; Add 1597 1161 1051; Mul 1563 327 1311; Mul 1090 798 1302;
  Add 1563 1563 1090; Mul 1090 318 1349; Mul 1423 640 1324; Add 1090 1090 1423; Add 1563 1563 1090;
  Add 1597 1597 1563; Sub 1105 1105 1597; Mul 1597 540 1105; Mul 1563 811 1291; Sub 1597 1597 1563;
  Mul 1563 813 1238; Mul 1090 310 1500; Mul 1423 464 1673; Add 1090 1090 1423; Mul 1267 327 1267;
  Mul 1423 703 1302; Add 1168 1267 1423; Mul 1177 318 1103; Mul 1338 662 1324; Add 1177 1177 1338;
  Add 1168 1168 1177; Add 1090 1090 1168; Sub 1354 1354 1090; Mul 1090 544 1354; Add 1563 1563 1090;
  Add 1597 1597 1563; Sub 1597 1511 1597; Mul 1597 4 1597; Mul 1563 812 1454; Add 1597 1597 1563;
  Add 1182 1182 1597; Mul 1597 728 1546; Mul 1563 609 1601; Add 1597 1597 1563; Mul 1563 733 1664;
  Mul 1090 604 1230; Add 1563 1563 1090; Add 1597 1597 1563; Mul 1563 734 1638; Mul 1090 426 1421;
  Add 1563 1563 1090; Add 1597 1597 1563; Mul 1563 739 1287; Mul 1090 438 1486; Add 1563 1563 1090;
  Mul 1090 816 1384; Mul 1420 358 1420; Mul 1168 462 1393; Add 1420 1420 1168; Mul 1665 372 1665;
  Mul 1168 458 1412; Add 1665 1665 1168; Sub 1420 1420 1665; Mul 1017 741 1017; Mul 1665 417 1187;
  Add 1017 1017 1665; Mul 1194 736 1194; Mul 1665 441 1705; Add 1194 1194 1665; Sub 1017 1017 1194;
  Add 1420 1420 1017; Mul 1017 733 1384; Mul 1194 445 1230; Add 1017 1017 1194; Mul 1194 728 1167;
  Mul 1665 434 1601; Add 1194 1194 1665; Sub 1017 1017 1194; Sub 1420 1420 1017; Mul 1420 430 1420;
  Mul 1017 445 1420; Add 1090 1090 1017; Sub 1563 1563 1090; Add 1597 1597 1563; Mul 1563 736 1163;
  Mul 1090 803 1705; Add 1563 1563 1090; Mul 1090 741 1272; Mul 1017 710 1187; Add 1194 1090 1017;
  Mul 1665 738 1083; Mul 1168 356 1323; Add 1665 1665 1168; Add 1194 1194 1665; Add 1563 1563 1194;
  Mul 1194 358 1679; Mul 1665 352 1393; Add 1194 1194 1665; Mul 1448 372 1448; Mul 1665 440 1412;
  Add 1168 1448 1665; Mul 1177 369 1055; Mul 1338 36 1351; Add 1177 1177 1338; Add 1168 1168 1177;
  Add 1194 1194 1168; Sub 1563 1563 1194; Add 1597 1597 1563; Mul 1563 216 1597; Mul 1194 814 1113;
  Sub 1563 1563 1194; Mul 1194 817 1513; Mul 1601 13 1601; Mul 1168 728 1121; Sub 1601 1601 1168;
  Mul 1168 733 1546; Mul 1230 609 1230; Add 1168 1168 1230; Add 1601 1601 1168; Mul 1168 734 1217;
  Mul 1421 443 1421; Add 1168 1168 1421; Add 1601 1601 1168; Mul 1168 816 1167; Mul 1421 434 1420;
  Add 1168 1168 1421; Mul 1421 735 1287; Mul 1230 438 1371; Add 1421 1421 1230; Sub 1168 1168 1421;
  Add 1601 1601 1168; Mul 1168 736 1422; Mul 1421 699 1705; Add 1230 1168 1421; Mul 1177 741 1107;
  Mul 1338 394 1187; Add 1177 1177 1338; Mul 1338 738 1024; Mul 1382 245 1323; Add 1338 1338 1382;
  Add 1177 1177 1338; Add 1230 1230 1177; Mul 1102 358 1102; Mul 1177 466 1393].
Definition casadi_f0_861 : list instruction := [
  Add 1338 1102 1177; Mul 1382 372 1657; Mul 1474 359 1412; Add 1382 1382 1474; Mul 1474 369 1145;
  Mul 1239 593 1351; Add 1474 1474 1239; Add 1382 1382 1474; Add 1338 1338 1382; Sub 1230 1230 1338;
  Add 1601 1601 1230; Mul 1230 215 1601; Add 1194 1194 1230; Sub 1230 1563 1194; Mul 1422 358 1422;
  Mul 1338 699 1393; Add 1382 1422 1338; Mul 1474 372 1252; Mul 1239 801 1412; Add 1474 1474 1239;
  Mul 1239 369 1170; Mul 1081 645 1351; Add 1239 1239 1081; Add 1474 1474 1239; Add 1382 1382 1474;
  Sub 1486 1486 1382; Mul 1382 540 1486; Mul 1474 820 1291; Sub 1382 1382 1474; Mul 1474 822 1238;
  Mul 1239 358 1645; Mul 1081 457 1393; Add 1239 1239 1081; Mul 1272 372 1272; Mul 1081 710 1412;
  Add 1458 1272 1081; Mul 1409 369 1554; Mul 1362 666 1351; Add 1409 1409 1362; Add 1458 1458 1409;
  Add 1239 1239 1458; Sub 1371 1371 1239; Mul 1239 544 1371; Add 1474 1474 1239; Add 1382 1382 1474;
  Sub 1382 1230 1382; Mul 1382 5 1382; Mul 1474 821 1464; Add 1382 1382 1474; Add 1182 1182 1382;
  Mul 1171 85 1171; Mul 1669 79 1669; Sub 1171 1171 1669; Mul 1418 54 1418; Mul 1661 61 1661;
  Sub 1418 1418 1661; Mul 1372 19 1372; Mul 1661 763 1266; Sub 1372 1372 1661; Mul 1661 751 1701;
  Mul 1612 35 1612; Add 1661 1661 1612; Sub 1372 1372 1661; Mul 1702 55 1702; Mul 1152 62 1152;
  Sub 1702 1702 1152; Add 1372 1372 1702; Add 1418 1418 1372; Mul 1656 86 1656; Mul 1136 91 1136;
  Sub 1656 1656 1136; Add 1656 1418 1656; Add 1171 1171 1656; Mul 1544 102 1544; Sub 1544 1171 1544;
  Mul 1322 101 1322; Add 1544 1544 1322; Add 1182 1182 1544; Mul 1544 777 1182; Sub 1373 1373 1544;
  Add 1364 1364 1373; Div 1373 1616 92; Mul 1544 1023 1301; Sub 1373 1373 1544; Mul 1544 767 1373;
  Mul 1466 674 1466; Mul 1322 630 1435; Sub 1466 1466 1322; Mul 1322 654 1097; Mul 1318 680 1318;
  Add 1322 1322 1318; Add 1218 1218 1236; Sub 1322 1322 1218; Add 1466 1466 1322; Mul 1322 615 1513;
  Mul 1099 215 1099; Add 1322 1322 1099; Mul 1151 216 1151; Mul 1099 7 1113; Sub 1151 1151 1099;
  Sub 1322 1322 1151; Add 1466 1466 1322; Mul 1466 0 1466; Mul 1322 771 1303; Add 1466 1466 1322;
  Mul 1322 748 1399; Mul 1151 216 1461; Mul 1099 523 1113; Sub 1151 1151 1099; Add 1151 1435 1151;
  Mul 1151 672 1151; Mul 1099 545 1151; Sub 1322 1322 1099; Mul 1099 216 1179; Mul 1218 502 1113;
  Sub 1099 1099 1218; Mul 1218 215 1388; Mul 1236 505 1513; Add 1218 1218 1236; Add 1099 1099 1218;
  Sub 1099 1099 1478; Mul 1099 672 1099; Mul 1218 504 1099; Mul 1236 750 1215; Add 1218 1218 1236;
  Mul 1236 215 1461; Mul 1318 523 1513; Add 1236 1236 1318; Sub 1236 1097 1236; Mul 1236 672 1236;
  Mul 1318 541 1236; Mul 1656 627 1361; Add 1318 1318 1656; Sub 1218 1218 1318; Add 1322 1322 1218;
  Mul 1122 215 1122; Mul 1218 517 1513; Add 1122 1122 1218; Mul 1232 216 1232; Mul 1218 532 1113;
  Sub 1232 1232 1218; Sub 1122 1122 1232; Mul 1232 627 1179; Mul 1218 502 1236; Add 1232 1232 1218;
  Mul 1218 748 1388; Mul 1318 505 1151; Sub 1218 1218 1318; Sub 1232 1232 1218].
Definition casadi_f0_862 : list instruction := [
  Add 1122 1122 1232; Mul 1122 508 1122; Mul 1232 744 1650; Add 1122 1122 1232; Mul 1232 215 1649;
  Mul 1218 783 1513; Add 1232 1232 1218; Mul 1244 216 1244; Mul 1218 488 1113; Sub 1244 1244 1218;
  Sub 1232 1232 1244; Mul 1244 748 1461; Mul 1151 523 1151; Sub 1244 1244 1151; Mul 1179 750 1179;
  Mul 1151 502 1099; Add 1179 1179 1151; Sub 1244 1244 1179; Add 1232 1232 1244; Mul 1232 536 1232;
  Mul 1244 824 1176; Add 1232 1232 1244; Sub 1122 1122 1232; Mul 1242 215 1242; Mul 1232 491 1513;
  Add 1242 1242 1232; Mul 1649 216 1649; Mul 1232 783 1113; Sub 1649 1649 1232; Sub 1242 1242 1649;
  Mul 1388 750 1388; Mul 1099 505 1099; Add 1388 1388 1099; Mul 1461 627 1461; Mul 1236 523 1236;
  Add 1461 1461 1236; Sub 1388 1388 1461; Add 1242 1242 1388; Mul 1242 526 1242; Mul 1388 825 1424;
  Add 1242 1242 1388; Sub 1122 1122 1242; Add 1322 1322 1122; Mul 1604 674 1604; Mul 1122 792 1435;
  Sub 1604 1604 1122; Add 1430 1430 1503; Mul 1503 298 1478; Sub 1191 1191 1048; Sub 1147 1147 1680;
  Sub 1231 1231 1310; Sub 1687 1687 1124; Add 1231 1231 1687; Add 1147 1147 1231; Add 1191 1191 1147;
  Mul 1124 676 1191; Add 1503 1503 1124; Sub 1430 1430 1503; Add 1604 1604 1430; Mul 1430 468 1513;
  Mul 1370 215 1370; Add 1430 1430 1370; Sub 1430 1430 1704; Add 1604 1604 1430; Mul 1604 216 1604;
  Mul 1430 823 1113; Sub 1604 1604 1430; Mul 1430 686 1097; Mul 1520 680 1520; Add 1430 1430 1520;
  Mul 1520 232 1478; Add 1188 1188 1528; Add 1488 1488 1515; Add 1584 1584 1439; Add 1570 1570 1542;
  Add 1584 1584 1570; Add 1488 1488 1584; Add 1188 1188 1488; Mul 1542 676 1188; Add 1520 1520 1542;
  Sub 1430 1430 1520; Add 1495 1495 1430; Add 1241 1241 1340; Mul 1411 216 1411; Mul 1340 461 1113;
  Sub 1411 1411 1340; Sub 1241 1241 1411; Add 1495 1495 1241; Mul 1495 215 1495; Mul 1241 668 1513;
  Add 1495 1495 1241; Sub 1604 1604 1495; Add 1634 1634 1608; Mul 1125 216 1125; Mul 1608 794 1113;
  Sub 1125 1125 1608; Sub 1634 1634 1125; Mul 1634 540 1634; Mul 1125 664 1291; Sub 1634 1634 1125;
  Mul 1125 808 1513; Mul 1169 215 1169; Add 1125 1125 1169; Sub 1125 1125 1204; Mul 1125 544 1125;
  Mul 1204 642 1238; Add 1125 1125 1204; Add 1634 1634 1125; Sub 1604 1604 1634; Add 1322 1322 1604;
  Mul 1322 1 1322; Mul 1604 760 1208; Add 1322 1322 1604; Add 1466 1466 1322; Mul 1532 674 1532;
  Mul 1322 233 1435; Sub 1532 1532 1322; Mul 1322 789 1097; Mul 1666 680 1666; Add 1322 1322 1666;
  Mul 1666 637 1478; Mul 1188 215 1188; Mul 1604 232 1513; Add 1188 1188 1604; Mul 1191 216 1191;
  Mul 1604 298 1113; Sub 1191 1191 1604; Sub 1188 1188 1191; Add 1077 1077 1188; Mul 1077 676 1077;
  Add 1666 1666 1077; Sub 1322 1322 1666; Add 1532 1532 1322; Sub 1560 1560 1229; Add 1532 1532 1560;
  Mul 1532 2 1532; Mul 1560 826 1117; Add 1532 1532 1560; Add 1466 1466 1532; Mul 1532 674 1700;
  Mul 1560 697 1435; Sub 1532 1532 1560; Mul 1560 695 1097; Mul 1229 680 1367; Add 1560 1560 1229;
  Mul 1229 647 1478; Mul 1322 216 1147; Mul 1666 411 1113; Sub 1322 1322 1666].
Definition casadi_f0_863 : list instruction := [
  Mul 1666 215 1488; Mul 1077 302 1513; Add 1666 1666 1077; Sub 1322 1322 1666; Add 1332 1332 1322;
  Mul 1322 676 1332; Add 1229 1229 1322; Sub 1560 1560 1229; Add 1532 1532 1560; Sub 1460 1460 1360;
  Add 1532 1532 1460; Mul 1532 3 1532; Mul 1460 347 1695; Add 1532 1532 1460; Add 1466 1466 1532;
  Mul 1532 674 1105; Mul 1460 811 1435; Sub 1532 1532 1460; Mul 1460 813 1097; Mul 1360 680 1354;
  Add 1460 1460 1360; Mul 1360 802 1478; Mul 1560 310 1584; Mul 1229 252 1673; Add 1560 1560 1229;
  Mul 1229 327 1231; Mul 1322 339 1302; Add 1229 1229 1322; Mul 1224 318 1224; Mul 1322 701 1324;
  Add 1666 1224 1322; Add 1229 1229 1666; Add 1560 1560 1229; Sub 1337 1337 1560; Mul 1560 676 1337;
  Add 1360 1360 1560; Sub 1460 1460 1360; Add 1532 1532 1460; Sub 1668 1668 1670; Add 1532 1532 1668;
  Mul 1532 4 1532; Mul 1668 698 1454; Add 1532 1532 1668; Add 1466 1466 1532; Mul 1532 674 1486;
  Mul 1668 820 1435; Sub 1532 1532 1668; Mul 1668 822 1097; Mul 1670 680 1371; Add 1668 1668 1670;
  Mul 1670 788 1478; Mul 1460 358 1570; Mul 1360 234 1393; Add 1460 1460 1360; Mul 1360 372 1687;
  Mul 1560 355 1412; Add 1360 1360 1560; Mul 1547 369 1547; Mul 1560 708 1351; Add 1229 1547 1560;
  Add 1360 1360 1229; Add 1460 1460 1360; Sub 1420 1420 1460; Mul 1460 676 1420; Add 1670 1670 1460;
  Sub 1668 1668 1670; Add 1532 1532 1668; Sub 1194 1194 1563; Add 1532 1532 1194; Mul 1532 5 1532;
  Mul 1194 809 1464; Add 1532 1532 1194; Add 1466 1466 1532; Sub 1171 1171 1466; Mul 1466 778 1171;
  Add 1544 1544 1466; Sub 1364 1364 1544; Div 1544 1269 92; Mul 1466 1516 1301; Sub 1544 1544 1466;
  Mul 1466 775 1544; Add 1470 1470 1149; Mul 1149 658 1144; Mul 1263 718 1263; Add 1149 1149 1263;
  Sub 1470 1470 1149; Mul 1149 635 1618; Mul 1132 714 1132; Add 1149 1149 1132; Sub 1470 1470 1149;
  Mul 1329 216 1329; Mul 1149 90 1113; Sub 1329 1329 1149; Mul 1149 566 1513; Mul 1226 215 1226;
  Add 1149 1149 1226; Sub 1329 1329 1149; Add 1470 1470 1329; Mul 1470 0 1470; Mul 1329 818 1303;
  Add 1470 1470 1329; Mul 1329 216 1628; Mul 1149 519 1113; Sub 1329 1329 1149; Sub 1329 1329 1618;
  Mul 1329 156 1329; Mul 1149 545 1329; Mul 1226 684 1399; Add 1149 1149 1226; Mul 1226 216 1644;
  Mul 1132 494 1113; Sub 1226 1226 1132; Mul 1132 215 1667; Mul 1263 497 1513; Add 1132 1132 1263;
  Add 1226 1226 1132; Sub 1226 1296 1226; Mul 1226 156 1226; Mul 1132 504 1226; Mul 1263 660 1215;
  Add 1132 1132 1263; Mul 1263 215 1628; Mul 1532 519 1513; Add 1263 1263 1532; Sub 1263 1263 1144;
  Mul 1263 156 1263; Mul 1532 541 1263; Mul 1194 827 1361; Add 1532 1532 1194; Sub 1132 1132 1532;
  Add 1149 1149 1132; Mul 1030 216 1030; Mul 1132 530 1113; Sub 1030 1030 1132; Mul 1181 215 1181;
  Mul 1132 513 1513; Add 1181 1181 1132; Sub 1030 1030 1181; Mul 1181 827 1644; Mul 1132 494 1263;
  Add 1181 1181 1132; Mul 1132 684 1667; Mul 1532 497 1329; Add 1132 1132 1532; Sub 1181 1181 1132;
  Add 1030 1030 1181; Mul 1181 508 1030; Mul 1132 656 1650; Add 1181 1181 1132].
Definition casadi_f0_864 : list instruction := [
  Mul 1627 216 1627; Mul 1132 481 1113; Sub 1627 1627 1132; Mul 1132 215 1111; Mul 1532 782 1513;
  Add 1132 1132 1532; Sub 1627 1627 1132; Mul 1132 684 1628; Mul 1532 519 1329; Add 1132 1132 1532;
  Mul 1644 660 1644; Mul 1532 494 1226; Add 1644 1644 1532; Sub 1132 1132 1644; Add 1627 1627 1132;
  Mul 1132 536 1627; Mul 1644 829 1176; Add 1132 1132 1644; Sub 1181 1181 1132; Mul 1111 216 1111;
  Mul 1132 782 1113; Sub 1111 1111 1132; Mul 1489 215 1489; Mul 1132 483 1513; Add 1489 1489 1132;
  Sub 1111 1111 1489; Mul 1667 660 1667; Mul 1489 497 1226; Add 1667 1667 1489; Mul 1628 827 1628;
  Mul 1489 519 1263; Add 1628 1628 1489; Sub 1667 1667 1628; Add 1111 1111 1667; Mul 1667 526 1111;
  Mul 1628 830 1424; Add 1667 1667 1628; Sub 1181 1181 1667; Add 1149 1149 1181; Mul 1181 411 1296;
  Mul 1147 716 1147; Add 1181 1181 1147; Add 1142 1142 1407; Sub 1181 1181 1142; Mul 1142 795 1618;
  Mul 1450 714 1450; Add 1142 1142 1450; Sub 1181 1181 1142; Mul 1142 416 1513; Mul 1091 215 1091;
  Add 1142 1142 1091; Sub 1535 1535 1142; Add 1181 1181 1535; Mul 1181 216 1181; Mul 1535 828 1113;
  Sub 1181 1181 1535; Mul 1535 302 1296; Mul 1488 716 1488; Add 1535 1535 1488; Mul 1488 448 1144;
  Mul 1465 718 1465; Add 1488 1488 1465; Sub 1535 1535 1488; Add 1233 1233 1036; Sub 1535 1535 1233;
  Mul 1223 216 1223; Mul 1233 414 1113; Sub 1223 1223 1233; Add 1639 1639 1568; Sub 1223 1223 1639;
  Add 1535 1535 1223; Mul 1535 215 1535; Mul 1223 832 1513; Add 1535 1535 1223; Sub 1223 1181 1535;
  Mul 1442 216 1442; Mul 1639 797 1113; Sub 1442 1442 1639; Add 1375 1375 1060; Sub 1442 1442 1375;
  Mul 1375 540 1442; Mul 1060 835 1291; Sub 1375 1375 1060; Mul 1060 415 1513; Mul 1196 215 1196;
  Add 1060 1060 1196; Sub 1496 1496 1060; Mul 1060 544 1496; Mul 1196 837 1238; Add 1060 1060 1196;
  Add 1375 1375 1060; Sub 1223 1223 1375; Add 1149 1149 1223; Mul 1149 1 1149; Mul 1223 632 1208;
  Add 1149 1149 1223; Add 1470 1470 1149; Mul 1329 678 1329; Mul 1149 684 1164; Add 1329 1329 1149;
  Mul 1263 673 1263; Mul 1149 827 1101; Add 1263 1263 1149; Mul 1226 799 1226; Mul 1149 660 1436;
  Add 1226 1226 1149; Add 1263 1263 1226; Add 1329 1329 1263; Mul 1111 602 1111; Mul 1263 830 1207;
  Add 1111 1111 1263; Mul 1627 670 1627; Mul 1263 829 1137; Add 1627 1627 1263; Mul 1030 671 1030;
  Mul 1263 656 1098; Add 1030 1030 1263; Sub 1627 1627 1030; Add 1111 1111 1627; Add 1329 1329 1111;
  Mul 1442 674 1442; Mul 1111 835 1435; Sub 1442 1442 1111; Mul 1496 680 1496; Mul 1111 837 1097;
  Add 1496 1496 1111; Mul 1403 216 1403; Mul 1111 403 1113; Sub 1403 1403 1111; Mul 1111 293 1513;
  Mul 1308 215 1308; Add 1111 1111 1308; Sub 1403 1403 1111; Mul 1403 676 1403; Mul 1111 839 1478;
  Add 1403 1403 1111; Sub 1496 1496 1403; Add 1442 1442 1496; Sub 1535 1535 1181; Add 1442 1442 1535;
  Add 1329 1329 1442; Mul 1329 2 1329; Mul 1442 834 1117; Add 1329 1329 1442; Add 1470 1470 1329;
  Mul 1329 647 1296; Mul 1332 716 1332; Add 1329 1329 1332; Mul 1332 695 1144].
Definition casadi_f0_865 : list instruction := [
  Mul 1367 718 1367; Add 1332 1332 1367; Sub 1329 1329 1332; Mul 1332 697 1618; Mul 1700 714 1700;
  Add 1332 1332 1700; Sub 1329 1329 1332; Add 1329 1329 1146; Mul 1329 3 1329; Mul 1146 836 1695;
  Add 1329 1329 1146; Add 1470 1470 1329; Mul 1329 802 1296; Mul 1146 716 1337; Add 1329 1329 1146;
  Mul 1146 813 1144; Mul 1332 718 1354; Add 1146 1146 1332; Sub 1329 1329 1146; Mul 1146 811 1618;
  Mul 1332 714 1105; Add 1146 1146 1332; Sub 1329 1329 1146; Add 1329 1329 1511; Mul 1329 4 1329;
  Mul 1511 702 1454; Add 1329 1329 1511; Add 1470 1470 1329; Mul 1329 788 1296; Mul 1511 716 1420;
  Add 1329 1329 1511; Mul 1511 822 1144; Mul 1146 718 1371; Add 1511 1511 1146; Sub 1329 1329 1511;
  Mul 1511 820 1618; Mul 1146 714 1486; Add 1511 1511 1146; Sub 1329 1329 1511; Add 1329 1329 1230;
  Mul 1329 5 1329; Mul 1230 810 1464; Add 1329 1329 1230; Add 1470 1470 1329; Add 1470 1470 1418;
  Mul 1418 769 1470; Sub 1466 1466 1418; Add 1364 1364 1466; Div 1466 1106 92; Mul 1418 1637 1301;
  Sub 1466 1466 1418; Mul 1418 815 1466; Mul 1329 640 1674; Mul 1349 725 1349; Add 1329 1329 1349;
  Mul 1349 662 1049; Mul 1103 731 1103; Add 1349 1349 1103; Add 1335 1335 1053; Add 1349 1349 1335;
  Add 1329 1329 1349; Mul 1349 580 1673; Mul 1538 310 1538; Add 1349 1349 1538; Mul 1538 59 1302;
  Mul 1258 327 1258; Add 1538 1538 1258; Add 1539 1539 1493; Add 1538 1538 1539; Add 1349 1349 1538;
  Sub 1329 1329 1349; Mul 1329 0 1329; Mul 1349 819 1303; Add 1329 1329 1349; Mul 1349 327 1586;
  Mul 1538 515 1302; Add 1349 1349 1538; Mul 1538 318 1130; Mul 1539 489 1324; Add 1538 1538 1539;
  Sub 1349 1349 1538; Sub 1349 1674 1349; Mul 1349 723 1349; Mul 1538 545 1349; Mul 1539 831 1399;
  Add 1538 1538 1539; Mul 1539 310 1130; Mul 1493 489 1673; Add 1539 1539 1493; Mul 1493 327 1438;
  Mul 1258 486 1302; Add 1493 1493 1258; Sub 1539 1539 1493; Sub 1539 1593 1539; Mul 1539 723 1539;
  Mul 1493 504 1539; Mul 1258 840 1215; Add 1493 1493 1258; Mul 1258 318 1438; Mul 1335 486 1324;
  Add 1258 1258 1335; Mul 1335 310 1586; Mul 1053 515 1673; Add 1335 1335 1053; Sub 1258 1258 1335;
  Sub 1258 1049 1258; Mul 1258 723 1258; Mul 1335 541 1258; Mul 1053 842 1361; Add 1335 1335 1053;
  Sub 1493 1493 1335; Add 1538 1538 1493; Mul 1493 842 1438; Mul 1335 486 1258; Add 1493 1493 1335;
  Mul 1335 831 1130; Mul 1053 489 1349; Add 1335 1335 1053; Sub 1493 1493 1335; Mul 1335 310 1200;
  Mul 1053 510 1673; Add 1335 1335 1053; Mul 1053 327 1652; Mul 1103 528 1302; Add 1053 1053 1103;
  Add 1335 1335 1053; Mul 1482 318 1482; Mul 1053 479 1324; Add 1482 1482 1053; Add 1335 1335 1482;
  Sub 1493 1493 1335; Mul 1335 508 1493; Mul 1482 841 1650; Add 1335 1335 1482; Mul 1482 831 1586;
  Mul 1053 515 1349; Add 1482 1482 1053; Mul 1438 840 1438; Mul 1053 486 1539; Add 1438 1438 1053;
  Sub 1482 1482 1438; Mul 1438 310 1277; Mul 1053 606 1673; Add 1438 1438 1053; Mul 1595 327 1595;
  Mul 1053 786 1302; Add 1595 1595 1053; Add 1438 1438 1595; Mul 1652 318 1652].
Definition casadi_f0_866 : list instruction := [
  Mul 1595 528 1324; Add 1652 1652 1595; Add 1438 1438 1652; Sub 1482 1482 1438; Mul 1438 536 1482;
  Mul 1652 844 1176; Add 1438 1438 1652; Sub 1335 1335 1438; Mul 1130 840 1130; Mul 1438 489 1539;
  Add 1130 1130 1438; Mul 1586 842 1586; Mul 1438 515 1258; Add 1586 1586 1438; Sub 1130 1130 1586;
  Mul 1415 310 1415; Mul 1586 705 1673; Add 1415 1415 1586; Mul 1277 327 1277; Mul 1586 606 1302;
  Add 1277 1277 1586; Add 1415 1415 1277; Mul 1200 318 1200; Mul 1277 510 1324; Add 1200 1200 1277;
  Add 1415 1415 1200; Sub 1130 1130 1415; Mul 1415 526 1130; Mul 1200 845 1424; Add 1415 1415 1200;
  Sub 1335 1335 1415; Add 1538 1538 1335; Add 1051 1051 1161; Mul 1161 800 1302; Mul 1402 327 1402;
  Add 1161 1161 1402; Mul 1402 643 1324; Mul 1583 318 1583; Add 1402 1402 1583; Add 1161 1161 1402;
  Add 1051 1051 1161; Mul 1161 540 1051; Mul 1402 843 1291; Sub 1161 1161 1402; Mul 1402 465 1673;
  Mul 1206 310 1206; Add 1402 1402 1206; Add 1423 1423 1267; Mul 1267 665 1324; Mul 1380 318 1380;
  Add 1267 1267 1380; Add 1423 1423 1267; Add 1402 1402 1423; Mul 1423 544 1402; Mul 1267 847 1238;
  Add 1423 1423 1267; Add 1161 1161 1423; Mul 1423 798 1674; Mul 1311 725 1311; Add 1423 1423 1311;
  Add 1173 1173 1174; Mul 1174 339 1593; Mul 1231 727 1231; Add 1174 1174 1231; Add 1173 1173 1174;
  Add 1423 1423 1173; Mul 1173 407 1673; Mul 1254 310 1254; Add 1173 1173 1254; Add 1578 1578 1432;
  Mul 1432 595 1324; Mul 1123 318 1123; Add 1432 1432 1123; Add 1578 1578 1432; Add 1173 1173 1578;
  Sub 1423 1423 1173; Mul 1423 216 1423; Mul 1173 848 1113; Sub 1423 1423 1173; Add 1545 1545 1607;
  Mul 1607 464 1049; Mul 1500 731 1500; Add 1607 1607 1500; Mul 1500 252 1593; Mul 1584 727 1584;
  Add 1500 1500 1584; Add 1607 1607 1500; Add 1545 1545 1607; Add 1566 1566 1315; Mul 1315 361 1302;
  Mul 1558 327 1558; Add 1315 1315 1558; Mul 1558 620 1324; Mul 1253 318 1253; Add 1558 1558 1253;
  Add 1315 1315 1558; Add 1566 1566 1315; Sub 1545 1545 1566; Mul 1545 215 1545; Mul 1566 850 1513;
  Add 1545 1545 1566; Sub 1566 1423 1545; Add 1161 1161 1566; Add 1538 1538 1161; Mul 1538 1 1538;
  Mul 1161 838 1208; Add 1538 1538 1161; Add 1329 1329 1538; Mul 1538 678 1349; Mul 1161 831 1164;
  Add 1538 1538 1161; Mul 1161 673 1258; Mul 1315 842 1101; Add 1161 1161 1315; Mul 1315 799 1539;
  Mul 1558 840 1436; Add 1315 1315 1558; Add 1161 1161 1315; Add 1538 1538 1161; Mul 1161 602 1130;
  Mul 1315 845 1207; Add 1161 1161 1315; Mul 1315 670 1482; Mul 1558 844 1137; Add 1315 1315 1558;
  Mul 1558 671 1493; Mul 1253 841 1098; Add 1558 1558 1253; Sub 1315 1315 1558; Add 1161 1161 1315;
  Add 1538 1538 1161; Mul 1161 785 1673; Mul 1505 310 1505; Add 1161 1161 1505; Mul 1505 306 1302;
  Mul 1691 327 1691; Add 1505 1505 1691; Add 1322 1322 1224; Add 1505 1505 1322; Add 1161 1161 1505;
  Mul 1505 676 1161; Mul 1322 853 1478; Add 1505 1505 1322; Mul 1322 680 1402; Mul 1224 847 1097;
  Add 1322 1322 1224; Sub 1505 1505 1322; Mul 1322 674 1051; Mul 1224 843 1435].
Definition casadi_f0_867 : list instruction := [
  Sub 1322 1322 1224; Sub 1505 1505 1322; Sub 1545 1545 1423; Add 1505 1505 1545; Add 1538 1538 1505;
  Mul 1538 2 1538; Mul 1505 846 1117; Add 1538 1538 1505; Add 1329 1329 1538; Mul 1349 717 1349;
  Mul 1538 831 1564; Add 1349 1349 1538; Mul 1539 787 1539; Mul 1538 840 1481; Add 1539 1539 1538;
  Mul 1258 713 1258; Mul 1538 842 1108; Add 1258 1258 1538; Sub 1539 1539 1258; Add 1349 1349 1539;
  Mul 1493 677 1493; Mul 1539 841 1082; Add 1493 1493 1539; Mul 1482 712 1482; Mul 1539 844 1268;
  Add 1482 1482 1539; Sub 1493 1493 1482; Mul 1130 706 1130; Mul 1482 845 1636; Add 1130 1130 1482;
  Sub 1493 1493 1130; Add 1349 1349 1493; Mul 1051 714 1051; Mul 1493 843 1618; Add 1051 1051 1493;
  Mul 1402 718 1402; Mul 1493 847 1144; Add 1402 1402 1493; Mul 1161 716 1161; Mul 1493 853 1296;
  Add 1161 1161 1493; Sub 1402 1402 1161; Add 1051 1051 1402; Add 1051 1051 1566; Add 1349 1349 1051;
  Mul 1349 3 1349; Mul 1051 854 1695; Add 1349 1349 1051; Add 1329 1329 1349; Mul 1349 811 1674;
  Mul 1105 725 1105; Add 1349 1349 1105; Mul 1105 813 1049; Mul 1354 731 1354; Add 1105 1105 1354;
  Mul 1354 802 1593; Mul 1337 727 1337; Add 1354 1354 1337; Add 1105 1105 1354; Add 1349 1349 1105;
  Mul 1105 807 1673; Mul 1154 310 1154; Add 1105 1105 1154; Mul 1154 690 1302; Mul 1658 327 1658;
  Add 1154 1154 1658; Mul 1658 720 1324; Mul 1281 318 1281; Add 1658 1658 1281; Add 1154 1154 1658;
  Add 1105 1105 1154; Sub 1349 1349 1105; Mul 1349 4 1349; Mul 1105 851 1454; Add 1349 1349 1105;
  Add 1329 1329 1349; Mul 1349 820 1674; Mul 1105 725 1486; Add 1349 1349 1105; Mul 1105 822 1049;
  Mul 1154 731 1371; Add 1105 1105 1154; Mul 1154 788 1593; Mul 1658 727 1420; Add 1154 1154 1658;
  Add 1105 1105 1154; Add 1349 1349 1105; Mul 1105 817 1673; Mul 1154 310 1601; Add 1105 1105 1154;
  Mul 1154 814 1302; Mul 1658 327 1597; Add 1154 1154 1658; Mul 1658 732 1324; Mul 1281 318 1681;
  Add 1658 1658 1281; Add 1154 1154 1658; Add 1105 1105 1154; Sub 1349 1349 1105; Mul 1349 5 1349;
  Mul 1105 852 1464; Add 1349 1349 1105; Add 1329 1329 1349; Sub 1052 1052 1329; Mul 1329 761 1052;
  Add 1418 1418 1329; Add 1364 1364 1418; Div 1418 1635 92; Mul 1329 1619 1301; Sub 1418 1418 1329;
  Mul 1329 833 1418; Mul 1349 645 1705; Mul 1170 736 1170; Add 1349 1349 1170; Mul 1170 666 1187;
  Mul 1554 741 1554; Add 1170 1170 1554; Add 1518 1518 1521; Add 1170 1170 1518; Add 1349 1349 1170;
  Mul 1170 593 1393; Mul 1145 358 1145; Add 1170 1170 1145; Mul 1145 36 1412; Mul 1055 372 1055;
  Add 1145 1145 1055; Add 1697 1697 1693; Add 1145 1145 1697; Add 1170 1170 1145; Sub 1349 1349 1170;
  Mul 1170 0 1349; Mul 1303 849 1303; Add 1170 1170 1303; Mul 1303 372 1287; Mul 1145 438 1412;
  Add 1303 1303 1145; Mul 1145 369 1167; Mul 1697 434 1351; Add 1145 1145 1697; Sub 1303 1303 1145;
  Sub 1303 1705 1303; Mul 1303 430 1303; Mul 1145 545 1303; Mul 1399 856 1399; Add 1145 1145 1399;
  Mul 1399 358 1167; Mul 1697 434 1393; Add 1399 1399 1697; Mul 1697 372 1384].
Definition casadi_f0_868 : list instruction := [
  Mul 1693 445 1412; Add 1697 1697 1693; Sub 1399 1399 1697; Sub 1399 1323 1399; Mul 1399 430 1399;
  Mul 1697 504 1399; Mul 1215 858 1215; Add 1697 1697 1215; Mul 1215 369 1384; Mul 1693 445 1351;
  Add 1215 1215 1693; Mul 1693 358 1287; Mul 1055 438 1393; Add 1693 1693 1055; Sub 1215 1215 1693;
  Sub 1215 1187 1215; Mul 1215 430 1215; Mul 1693 541 1215; Mul 1361 860 1361; Add 1693 1693 1361;
  Sub 1697 1697 1693; Add 1145 1145 1697; Mul 1697 860 1384; Mul 1693 445 1215; Add 1697 1697 1693;
  Mul 1693 856 1167; Mul 1361 434 1303; Add 1693 1693 1361; Sub 1697 1697 1693; Mul 1693 358 1217;
  Mul 1361 443 1393; Add 1693 1693 1361; Mul 1361 372 1638; Mul 1055 426 1412; Add 1361 1361 1055;
  Add 1693 1693 1361; Mul 1676 369 1676; Mul 1361 478 1351; Add 1676 1676 1361; Add 1693 1693 1676;
  Sub 1697 1697 1693; Mul 1693 508 1697; Mul 1650 859 1650; Add 1693 1693 1650; Mul 1650 856 1287;
  Mul 1676 438 1303; Add 1650 1650 1676; Mul 1384 858 1384; Mul 1676 445 1399; Add 1384 1384 1676;
  Sub 1650 1650 1384; Mul 1384 358 1546; Mul 1676 609 1393; Add 1384 1384 1676; Mul 1664 372 1664;
  Mul 1676 604 1412; Add 1664 1664 1676; Add 1384 1384 1664; Mul 1638 369 1638; Mul 1664 426 1351;
  Add 1638 1638 1664; Add 1384 1384 1638; Sub 1650 1650 1384; Mul 1384 536 1650; Mul 1176 862 1176;
  Add 1384 1384 1176; Sub 1693 1693 1384; Mul 1167 858 1167; Mul 1384 434 1399; Add 1167 1167 1384;
  Mul 1287 860 1287; Mul 1384 438 1215; Add 1287 1287 1384; Sub 1167 1167 1287; Mul 1287 13 1393;
  Mul 1121 358 1121; Sub 1287 1287 1121; Mul 1546 372 1546; Mul 1121 609 1412; Add 1546 1546 1121;
  Add 1287 1287 1546; Mul 1217 369 1217; Mul 1546 443 1351; Add 1217 1217 1546; Add 1287 1287 1217;
  Sub 1167 1167 1287; Mul 1287 526 1167; Mul 1424 863 1424; Add 1287 1287 1424; Sub 1693 1693 1287;
  Add 1145 1145 1693; Add 1338 1338 1422; Mul 1422 803 1412; Mul 1163 372 1163; Add 1422 1422 1163;
  Mul 1163 648 1351; Mul 1620 369 1620; Add 1163 1163 1620; Add 1422 1422 1163; Add 1338 1338 1422;
  Mul 1422 540 1338; Mul 1291 861 1291; Sub 1422 1422 1291; Mul 1291 394 1393; Mul 1107 358 1107;
  Add 1291 1291 1107; Add 1081 1081 1272; Mul 1272 669 1351; Mul 1447 369 1447; Add 1272 1272 1447;
  Add 1081 1081 1272; Add 1291 1291 1081; Mul 1081 544 1291; Mul 1238 865 1238; Add 1081 1081 1238;
  Add 1422 1422 1081; Mul 1081 801 1705; Mul 1252 736 1252; Add 1081 1081 1252; Add 1017 1017 1090;
  Mul 1090 355 1323; Mul 1687 738 1687; Add 1090 1090 1687; Add 1017 1017 1090; Add 1081 1081 1017;
  Mul 1017 359 1393; Mul 1657 358 1657; Add 1017 1017 1657; Add 1665 1665 1448; Mul 1448 608 1351;
  Mul 1475 369 1475; Add 1448 1448 1475; Add 1665 1665 1448; Add 1017 1017 1665; Sub 1081 1081 1017;
  Mul 1017 216 1081; Mul 1113 866 1113; Sub 1017 1017 1113; Add 1421 1421 1168; Mul 1168 457 1187;
  Mul 1645 741 1645; Add 1168 1168 1645; Mul 1645 234 1323; Mul 1570 738 1570; Add 1645 1645 1570;
  Add 1168 1168 1645; Add 1421 1421 1168; Add 1177 1177 1102; Mul 1102 352 1412].
Definition casadi_f0_869 : list instruction := [
  Mul 1679 372 1679; Add 1102 1102 1679; Mul 1679 622 1351; Mul 1648 369 1648; Add 1679 1679 1648;
  Add 1102 1102 1679; Add 1177 1177 1102; Sub 1421 1421 1177; Mul 1177 215 1421; Mul 1513 868 1513;
  Add 1177 1177 1513; Sub 1513 1017 1177; Add 1422 1422 1513; Add 1145 1145 1422; Mul 1145 1 1145;
  Mul 1208 857 1208; Add 1145 1145 1208; Add 1170 1170 1145; Mul 1145 678 1303; Mul 1164 856 1164;
  Add 1145 1145 1164; Mul 1164 673 1215; Mul 1101 860 1101; Add 1164 1164 1101; Mul 1101 799 1399;
  Mul 1436 858 1436; Add 1101 1101 1436; Add 1164 1164 1101; Add 1145 1145 1164; Mul 1164 602 1167;
  Mul 1207 863 1207; Add 1164 1164 1207; Mul 1207 670 1650; Mul 1137 862 1137; Add 1207 1207 1137;
  Mul 1137 671 1697; Mul 1098 859 1098; Add 1137 1137 1098; Sub 1207 1207 1137; Add 1164 1164 1207;
  Add 1145 1145 1164; Mul 1164 245 1393; Mul 1024 358 1024; Add 1164 1164 1024; Mul 1024 356 1412;
  Mul 1083 372 1083; Add 1024 1024 1083; Add 1560 1560 1547; Add 1024 1024 1560; Add 1164 1164 1024;
  Mul 1024 676 1164; Mul 1478 871 1478; Add 1024 1024 1478; Mul 1478 680 1291; Mul 1097 865 1097;
  Add 1478 1478 1097; Sub 1024 1024 1478; Mul 1478 674 1338; Mul 1435 861 1435; Sub 1478 1478 1435;
  Sub 1024 1024 1478; Sub 1177 1177 1017; Add 1024 1024 1177; Add 1145 1145 1024; Mul 1145 2 1145;
  Mul 1117 864 1117; Add 1145 1145 1117; Add 1170 1170 1145; Mul 1145 717 1303; Mul 1564 856 1564;
  Add 1145 1145 1564; Mul 1564 787 1399; Mul 1481 858 1481; Add 1564 1564 1481; Mul 1481 713 1215;
  Mul 1108 860 1108; Add 1481 1481 1108; Sub 1564 1564 1481; Add 1145 1145 1564; Mul 1564 677 1697;
  Mul 1082 859 1082; Add 1564 1564 1082; Mul 1082 712 1650; Mul 1268 862 1268; Add 1082 1082 1268;
  Sub 1564 1564 1082; Mul 1082 706 1167; Mul 1636 863 1636; Add 1082 1082 1636; Sub 1564 1564 1082;
  Add 1145 1145 1564; Mul 1564 714 1338; Mul 1618 861 1618; Add 1564 1564 1618; Mul 1618 718 1291;
  Mul 1144 865 1144; Add 1618 1618 1144; Mul 1144 716 1164; Mul 1296 871 1296; Add 1144 1144 1296;
  Sub 1618 1618 1144; Add 1564 1564 1618; Add 1564 1564 1513; Add 1145 1145 1564; Mul 1145 3 1145;
  Mul 1695 872 1695; Add 1145 1145 1695; Add 1170 1170 1145; Mul 1303 729 1303; Mul 1510 856 1510;
  Add 1303 1303 1510; Mul 1215 724 1215; Mul 1575 860 1575; Add 1215 1215 1575; Mul 1399 688 1399;
  Mul 1378 858 1378; Add 1399 1399 1378; Add 1215 1215 1399; Add 1303 1303 1215; Mul 1167 715 1167;
  Mul 1611 863 1611; Add 1167 1167 1611; Mul 1650 721 1650; Mul 1350 862 1350; Add 1650 1650 1350;
  Mul 1697 722 1697; Mul 1585 859 1585; Add 1697 1697 1585; Add 1650 1650 1697; Add 1167 1167 1650;
  Add 1303 1303 1167; Mul 1338 725 1338; Mul 1674 861 1674; Add 1338 1338 1674; Mul 1291 731 1291;
  Mul 1049 865 1049; Add 1291 1291 1049; Mul 1164 727 1164; Mul 1593 871 1593; Add 1164 1164 1593;
  Add 1291 1291 1164; Add 1338 1338 1291; Mul 1421 310 1421; Mul 1673 868 1673; Add 1421 1421 1673;
  Mul 1081 327 1081; Mul 1302 866 1302; Add 1081 1081 1302; Mul 1349 318 1349].
Definition casadi_f0_870 : list instruction := [
  Mul 1324 849 1324; Add 1349 1349 1324; Add 1081 1081 1349; Add 1421 1421 1081; Add 1338 1338 1421;
  Sub 1303 1303 1338; Mul 1303 4 1303; Mul 1454 869 1454; Add 1303 1303 1454; Add 1170 1170 1303;
  Mul 1705 820 1705; Mul 1486 736 1486; Add 1705 1705 1486; Mul 1187 822 1187; Mul 1371 741 1371;
  Add 1187 1187 1371; Mul 1323 788 1323; Mul 1420 738 1420; Add 1323 1323 1420; Add 1187 1187 1323;
  Add 1705 1705 1187; Mul 1393 817 1393; Mul 1601 358 1601; Add 1393 1393 1601; Mul 1412 814 1412;
  Mul 1597 372 1597; Add 1412 1412 1597; Mul 1351 732 1351; Mul 1681 369 1681; Add 1351 1351 1681;
  Add 1412 1412 1351; Add 1393 1393 1412; Sub 1705 1705 1393; Mul 1705 5 1705; Mul 1464 870 1464;
  Add 1705 1705 1464; Add 1170 1170 1705; Sub 1514 1514 1170; Mul 1170 754 1514; Add 1329 1329 1170;
  Add 1364 1364 1329; Mul 1329 210 1635; Mul 1170 200 1127; Add 1329 1329 1170; Mul 1128 19 1128;
  Mul 1170 196 1266; Sub 1128 1128 1170; Mul 1170 189 1701; Mul 1476 35 1476; Sub 1170 1170 1476;
  Sub 1128 1128 1170; Mul 1609 55 1609; Mul 1374 62 1374; Add 1609 1609 1374; Add 1128 1128 1609;
  Mul 1330 86 1330; Mul 1555 91 1555; Add 1330 1330 1555; Add 1330 1128 1330; Mul 1395 102 1395;
  Sub 1395 1330 1395; Mul 1555 777 1395; Mul 1609 209 1698; Add 1555 1555 1609; Add 1329 1329 1555;
  Mul 1555 778 1330; Mul 1609 867 1373; Add 1555 1555 1609; Add 1329 1329 1555; Mul 1555 769 1128;
  Mul 1609 855 1544; Add 1555 1555 1609; Add 1329 1329 1555; Mul 1555 761 1599; Mul 1609 201 1466;
  Add 1555 1555 1609; Sub 1329 1329 1555; Mul 1555 873 1418; Add 1329 1329 1555; Mul 1555 1006 1329;
  Mul 1609 210 1329; Mul 1374 756 1127; Add 1609 1609 1374; Sub 1635 1635 1609; Mul 1609 881 1635;
  Mul 1374 210 1356; Mul 1170 143 1127; Add 1374 1374 1170; Sub 1298 1298 1307; Sub 1314 1314 1352;
  Mul 1314 37 1314; Add 1298 1298 1314; Sub 1202 1202 1577; Mul 1202 80 1202; Add 1202 1298 1202;
  Sub 1120 1120 1408; Mul 1120 100 1120; Add 1120 1202 1120; Mul 1613 1064 1613; Mul 1344 1061 1344;
  Add 1613 1613 1344; Mul 1613 141 1613; Add 1120 1120 1613; Mul 1613 777 1120; Mul 1344 876 1698;
  Add 1613 1613 1344; Add 1374 1374 1613; Mul 1025 151 1025; Mul 1321 103 1321; Add 1025 1025 1321;
  Mul 1115 148 1115; Mul 1531 105 1531; Add 1115 1115 1531; Sub 1025 1025 1115; Sub 1025 1025 1202;
  Mul 1519 102 1519; Sub 1519 1025 1519; Mul 1202 778 1519; Mul 1115 153 1373; Add 1202 1202 1115;
  Sub 1374 1374 1202; Mul 1385 1057 1385; Mul 1582 1065 1582; Sub 1385 1385 1582; Mul 1385 156 1385;
  Add 1298 1298 1385; Mul 1150 86 1150; Mul 1201 91 1201; Sub 1150 1150 1201; Add 1150 1298 1150;
  Mul 1452 102 1452; Sub 1452 1150 1452; Mul 1201 769 1452; Mul 1385 171 1544; Add 1201 1201 1385;
  Add 1374 1374 1201; Mul 1701 180 1701; Mul 1600 35 1600; Add 1701 1701 1600; Mul 1280 19 1280;
  Mul 1266 182 1266; Sub 1280 1280 1266; Sub 1701 1701 1280; Mul 1222 55 1222; Add 1701 1701 1222;
  Mul 1205 86 1205; Mul 1561 91 1561; Add 1205 1205 1561; Add 1205 1701 1205].
Definition casadi_f0_871 : list instruction := [
  Mul 1221 102 1221; Sub 1221 1205 1221; Mul 1561 761 1221; Mul 1222 188 1466; Add 1561 1561 1222;
  Add 1374 1374 1561; Mul 1561 754 1395; Mul 1222 209 1418; Add 1561 1561 1222; Add 1374 1374 1561;
  Mul 1561 210 1374; Mul 1222 875 1127; Add 1561 1561 1222; Sub 1356 1356 1561; Div 1561 1356 65;
  Mul 1356 89 1356; Mul 1222 777 1374; Mul 1280 875 1698; Add 1222 1222 1280; Sub 1120 1120 1222;
  Mul 1222 58 1120; Add 1356 1356 1222; Mul 1222 778 1374; Mul 1280 875 1373; Add 1222 1222 1280;
  Add 1222 1519 1222; Mul 1280 45 1222; Add 1356 1356 1280; Mul 1280 769 1374; Mul 1266 875 1544;
  Add 1280 1280 1266; Sub 1280 1452 1280; Mul 1266 22 1280; Add 1356 1356 1266; Mul 1266 761 1374;
  Mul 1600 875 1466; Add 1266 1266 1600; Sub 1266 1221 1266; Mul 1600 879 1266; Add 1356 1356 1600;
  Mul 1600 754 1374; Mul 1201 875 1418; Add 1600 1600 1201; Sub 1600 1395 1600; Mul 1201 880 1600;
  Add 1356 1356 1201; Div 1356 1356 1045; Mul 1201 1078 1356; Sub 1561 1561 1201; Mul 1201 874 1561;
  Add 1609 1609 1201; Mul 1201 777 1329; Mul 1385 756 1698; Add 1201 1201 1385; Sub 1395 1395 1201;
  Mul 1201 884 1395; Div 1120 1120 65; Mul 1385 1029 1356; Sub 1120 1120 1385; Mul 1385 883 1120;
  Add 1201 1201 1385; Add 1609 1609 1201; Mul 1201 778 1329; Mul 1385 756 1373; Add 1201 1201 1385;
  Sub 1201 1201 1330; Mul 1385 886 1201; Div 1222 1222 65; Mul 1582 1063 1356; Sub 1222 1222 1582;
  Mul 1582 885 1222; Add 1385 1385 1582; Add 1609 1609 1385; Mul 1385 769 1329; Mul 1582 756 1544;
  Add 1385 1385 1582; Sub 1385 1128 1385; Mul 1582 888 1385; Div 1280 1280 65; Mul 1202 1040 1356;
  Sub 1280 1280 1202; Mul 1202 887 1280; Add 1582 1582 1202; Add 1609 1609 1582; Mul 1582 761 1329;
  Mul 1202 756 1466; Add 1582 1582 1202; Add 1582 1599 1582; Mul 1202 890 1582; Div 1266 1266 65;
  Mul 1115 1027 1356; Sub 1266 1266 1115; Mul 1115 889 1266; Add 1202 1202 1115; Sub 1609 1609 1202;
  Div 1600 1600 65; Mul 1202 1046 1356; Sub 1600 1600 1202; Mul 1202 891 1600; Mul 1329 754 1329;
  Mul 1115 756 1418; Add 1329 1329 1115; Mul 1115 892 1329; Sub 1202 1202 1115; Add 1609 1609 1202;
  Mul 1202 881 1609; Mul 1115 882 1561; Add 1202 1202 1115; Sub 1635 1635 1202; Mul 1202 884 1609;
  Mul 1115 882 1120; Add 1202 1202 1115; Sub 1395 1395 1202; Mul 1202 910 1395; Mul 1115 777 1519;
  Mul 1531 153 1698; Add 1115 1115 1531; Mul 1531 210 1616; Mul 1321 154 1127; Add 1531 1531 1321;
  Sub 1115 1115 1531; Mul 1531 778 1025; Mul 1321 106 1373; Add 1531 1531 1321; Add 1115 1115 1531;
  Mul 1531 769 1150; Mul 1321 877 1544; Add 1531 1531 1321; Sub 1115 1115 1531; Mul 1531 761 1205;
  Mul 1321 94 1466; Add 1531 1531 1321; Sub 1115 1115 1531; Mul 1531 754 1330; Mul 1321 867 1418;
  Add 1531 1531 1321; Sub 1115 1115 1531; Mul 1531 777 1115; Mul 1321 895 1698; Add 1531 1531 1321;
  Sub 1519 1519 1531; Mul 1531 884 1519; Mul 1321 896 1120; Add 1531 1531 1321; Mul 1321 210 1115;
  Mul 1613 895 1127; Add 1321 1321 1613; Add 1616 1616 1321; Mul 1321 881 1616].
Definition casadi_f0_872 : list instruction := [
  Mul 1613 898 1561; Add 1321 1321 1613; Sub 1531 1531 1321; Mul 1321 778 1115; Mul 1613 895 1373;
  Add 1321 1321 1613; Sub 1321 1321 1025; Mul 1025 886 1321; Mul 1613 899 1222; Add 1025 1025 1613;
  Add 1531 1531 1025; Mul 1025 769 1115; Mul 1613 895 1544; Add 1025 1025 1613; Add 1025 1150 1025;
  Mul 1613 888 1025; Mul 1344 900 1280; Add 1613 1613 1344; Sub 1531 1531 1613; Mul 1613 761 1115;
  Mul 1344 895 1466; Add 1613 1613 1344; Add 1613 1205 1613; Mul 1344 890 1613; Mul 1408 901 1266;
  Add 1344 1344 1408; Sub 1531 1531 1344; Mul 1344 754 1115; Mul 1408 895 1418; Add 1344 1344 1408;
  Add 1330 1330 1344; Mul 1344 892 1330; Mul 1408 902 1600; Add 1344 1344 1408; Sub 1531 1531 1344;
  Mul 1344 884 1531; Mul 1408 897 1120; Add 1344 1344 1408; Sub 1519 1519 1344; Div 1344 1519 905;
  Mul 1408 881 1531; Mul 1577 897 1561; Add 1408 1408 1577; Add 1616 1616 1408; Mul 1408 904 1616;
  Mul 1519 903 1519; Add 1408 1408 1519; Mul 1519 886 1531; Mul 1577 897 1222; Add 1519 1519 1577;
  Sub 1321 1321 1519; Mul 1519 906 1321; Add 1408 1408 1519; Mul 1519 888 1531; Mul 1577 897 1280;
  Add 1519 1519 1577; Add 1025 1025 1519; Mul 1519 907 1025; Add 1408 1408 1519; Mul 1519 890 1531;
  Mul 1577 897 1266; Add 1519 1519 1577; Add 1613 1613 1519; Mul 1519 908 1613; Add 1408 1408 1519;
  Mul 1519 892 1531; Mul 1577 897 1600; Add 1519 1519 1577; Add 1330 1330 1519; Mul 1519 909 1330;
  Add 1408 1408 1519; Div 1408 1408 1067; Mul 1519 1214 1408; Sub 1344 1344 1519; Mul 1519 894 1344;
  Add 1202 1202 1519; Mul 1519 912 1635; Div 1616 1616 905; Mul 1577 1614 1408; Sub 1616 1616 1577;
  Mul 1577 893 1616; Add 1519 1519 1577; Sub 1202 1202 1519; Mul 1519 886 1609; Mul 1577 882 1222;
  Add 1519 1519 1577; Sub 1201 1201 1519; Mul 1519 914 1201; Div 1321 1321 905; Mul 1577 1273 1408;
  Sub 1321 1321 1577; Mul 1577 913 1321; Add 1519 1519 1577; Add 1202 1202 1519; Mul 1519 888 1609;
  Mul 1577 882 1280; Add 1519 1519 1577; Sub 1385 1385 1519; Mul 1519 916 1385; Div 1025 1025 905;
  Mul 1577 1260 1408; Sub 1025 1025 1577; Mul 1577 915 1025; Add 1519 1519 1577; Sub 1202 1202 1519;
  Mul 1519 890 1609; Mul 1577 882 1266; Add 1519 1519 1577; Add 1582 1582 1519; Mul 1519 918 1582;
  Div 1613 1613 905; Mul 1577 1249 1408; Sub 1613 1613 1577; Mul 1577 917 1613; Add 1519 1519 1577;
  Add 1202 1202 1519; Div 1330 1330 905; Mul 1519 1569 1408; Sub 1330 1330 1519; Mul 1519 919 1330;
  Mul 1577 892 1609; Mul 1314 882 1600; Add 1577 1577 1314; Add 1329 1329 1577; Mul 1577 920 1329;
  Sub 1519 1519 1577; Sub 1202 1202 1519; Mul 1519 912 1202; Mul 1577 911 1616; Add 1519 1519 1577;
  Add 1635 1635 1519; Mul 1519 944 1635; Mul 1577 210 1269; Mul 1314 168 1127; Add 1577 1577 1314;
  Mul 1314 777 1452; Mul 1352 171 1698; Add 1314 1314 1352; Add 1577 1577 1314; Mul 1314 778 1150;
  Mul 1352 877 1373; Add 1314 1314 1352; Add 1577 1577 1314; Mul 1314 769 1298; Mul 1352 878 1544;
  Add 1314 1314 1352; Add 1577 1577 1314; Mul 1314 761 1701; Mul 1352 98 1466].
Definition casadi_f0_873 : list instruction := [
  Add 1314 1314 1352; Add 1577 1577 1314; Mul 1314 754 1128; Mul 1352 855 1418; Add 1314 1314 1352;
  Add 1577 1577 1314; Mul 1314 210 1577; Mul 1352 922 1127; Add 1314 1314 1352; Sub 1269 1269 1314;
  Mul 1314 881 1269; Mul 1352 923 1561; Add 1314 1314 1352; Mul 1352 777 1577; Mul 1307 922 1698;
  Add 1352 1352 1307; Sub 1452 1452 1352; Mul 1352 884 1452; Mul 1307 925 1120; Add 1352 1352 1307;
  Add 1314 1314 1352; Mul 1352 778 1577; Mul 1307 922 1373; Add 1352 1352 1307; Sub 1352 1352 1150;
  Mul 1150 886 1352; Mul 1307 926 1222; Add 1150 1150 1307; Add 1314 1314 1150; Mul 1150 769 1577;
  Mul 1307 922 1544; Add 1150 1150 1307; Sub 1298 1298 1150; Mul 1150 888 1298; Mul 1307 927 1280;
  Add 1150 1150 1307; Add 1314 1314 1150; Mul 1150 761 1577; Mul 1307 922 1466; Add 1150 1150 1307;
  Sub 1150 1701 1150; Mul 1307 890 1150; Mul 1170 928 1266; Add 1307 1307 1170; Add 1314 1314 1307;
  Mul 1307 754 1577; Mul 1170 922 1418; Add 1307 1307 1170; Sub 1128 1128 1307; Mul 1307 892 1128;
  Mul 1170 929 1600; Add 1307 1307 1170; Add 1314 1314 1307; Mul 1307 881 1314; Mul 1170 924 1561;
  Add 1307 1307 1170; Sub 1269 1269 1307; Mul 1307 884 1314; Mul 1170 924 1120; Add 1307 1307 1170;
  Sub 1452 1452 1307; Mul 1307 910 1452; Mul 1170 931 1344; Add 1307 1307 1170; Mul 1170 912 1269;
  Mul 1476 930 1616; Add 1170 1170 1476; Sub 1307 1307 1170; Mul 1170 886 1314; Mul 1476 924 1222;
  Add 1170 1170 1476; Sub 1352 1352 1170; Mul 1170 914 1352; Mul 1476 933 1321; Add 1170 1170 1476;
  Add 1307 1307 1170; Mul 1170 888 1314; Mul 1476 924 1280; Add 1170 1170 1476; Sub 1298 1298 1170;
  Mul 1170 916 1298; Mul 1476 934 1025; Add 1170 1170 1476; Sub 1307 1307 1170; Mul 1170 890 1314;
  Mul 1476 924 1266; Add 1170 1170 1476; Sub 1150 1150 1170; Mul 1170 918 1150; Mul 1476 935 1613;
  Add 1170 1170 1476; Sub 1307 1307 1170; Mul 1170 892 1314; Mul 1476 924 1600; Add 1170 1170 1476;
  Sub 1128 1128 1170; Mul 1170 920 1128; Mul 1476 936 1330; Add 1170 1170 1476; Sub 1307 1307 1170;
  Mul 1170 912 1307; Mul 1476 932 1616; Add 1170 1170 1476; Add 1269 1269 1170; Div 1170 1269 938;
  Mul 1269 937 1269; Mul 1476 910 1307; Mul 1705 932 1344; Add 1476 1476 1705; Sub 1452 1452 1476;
  Mul 1476 939 1452; Add 1269 1269 1476; Mul 1476 914 1307; Mul 1705 932 1321; Add 1476 1476 1705;
  Sub 1352 1352 1476; Mul 1476 940 1352; Add 1269 1269 1476; Mul 1476 916 1307; Mul 1705 932 1025;
  Add 1476 1476 1705; Add 1298 1298 1476; Mul 1476 941 1298; Add 1269 1269 1476; Mul 1476 918 1307;
  Mul 1705 932 1613; Add 1476 1476 1705; Add 1150 1150 1476; Mul 1476 942 1150; Add 1269 1269 1476;
  Mul 1476 920 1307; Mul 1705 932 1330; Add 1476 1476 1705; Add 1128 1128 1476; Mul 1476 943 1128;
  Add 1269 1269 1476; Div 1269 1269 1615; Mul 1476 1446 1269; Sub 1170 1170 1476; Mul 1476 921 1170;
  Add 1519 1519 1476; Mul 1476 910 1202; Mul 1705 911 1344; Add 1476 1476 1705; Sub 1395 1395 1476;
  Mul 1476 947 1395; Div 1452 1452 938; Mul 1705 1184 1269; Sub 1452 1452 1705].
Definition casadi_f0_874 : list instruction := [
  Mul 1705 946 1452; Add 1476 1476 1705; Add 1519 1519 1476; Mul 1476 914 1202; Mul 1705 911 1321;
  Add 1476 1476 1705; Sub 1201 1201 1476; Mul 1476 949 1201; Div 1352 1352 938; Mul 1705 1160 1269;
  Sub 1352 1352 1705; Mul 1705 948 1352; Add 1476 1476 1705; Add 1519 1519 1476; Mul 1476 916 1202;
  Mul 1705 911 1025; Add 1476 1476 1705; Add 1385 1385 1476; Mul 1476 951 1385; Div 1298 1298 938;
  Mul 1705 1328 1269; Sub 1298 1298 1705; Mul 1705 950 1298; Add 1476 1476 1705; Add 1519 1519 1476;
  Mul 1476 918 1202; Mul 1705 911 1613; Add 1476 1476 1705; Sub 1476 1476 1582; Mul 1582 953 1476;
  Div 1150 1150 938; Mul 1705 1155 1269; Sub 1150 1150 1705; Mul 1705 952 1150; Add 1582 1582 1705;
  Add 1519 1519 1582; Mul 1582 920 1202; Mul 1705 911 1330; Add 1582 1582 1705; Sub 1582 1582 1329;
  Mul 1329 955 1582; Div 1128 1128 938; Mul 1705 1220 1269; Sub 1128 1128 1705; Mul 1705 954 1128;
  Add 1329 1329 1705; Add 1519 1519 1329; Mul 1329 944 1519; Mul 1705 945 1170; Add 1329 1329 1705;
  Sub 1635 1635 1329; Mul 1329 986 1635; Mul 1705 210 1106; Mul 1464 175 1127; Add 1705 1705 1464;
  Mul 1464 777 1221; Mul 1393 188 1698; Add 1464 1464 1393; Add 1705 1705 1464; Mul 1464 778 1205;
  Mul 1393 94 1373; Add 1464 1464 1393; Add 1705 1705 1464; Mul 1464 769 1701; Mul 1393 98 1544;
  Add 1464 1464 1393; Add 1705 1705 1464; Mul 1464 761 1387; Mul 1393 172 1466; Add 1464 1464 1393;
  Sub 1705 1705 1464; Mul 1464 754 1599; Mul 1393 201 1418; Add 1464 1464 1393; Sub 1705 1705 1464;
  Mul 1464 210 1705; Mul 1127 957 1127; Add 1464 1464 1127; Sub 1106 1106 1464; Mul 1464 881 1106;
  Mul 1127 958 1561; Add 1464 1464 1127; Mul 1127 777 1705; Mul 1698 957 1698; Add 1127 1127 1698;
  Sub 1221 1221 1127; Mul 1127 884 1221; Mul 1698 960 1120; Add 1127 1127 1698; Add 1464 1464 1127;
  Mul 1127 778 1705; Mul 1373 957 1373; Add 1127 1127 1373; Sub 1127 1127 1205; Mul 1205 886 1127;
  Mul 1373 961 1222; Add 1205 1205 1373; Add 1464 1464 1205; Mul 1205 769 1705; Mul 1544 957 1544;
  Add 1205 1205 1544; Sub 1701 1701 1205; Mul 1205 888 1701; Mul 1544 962 1280; Add 1205 1205 1544;
  Add 1464 1464 1205; Mul 1205 761 1705; Mul 1466 957 1466; Add 1205 1205 1466; Add 1387 1387 1205;
  Mul 1205 890 1387; Mul 1466 963 1266; Add 1205 1205 1466; Sub 1464 1464 1205; Mul 1205 754 1705;
  Mul 1418 957 1418; Add 1205 1205 1418; Add 1599 1599 1205; Mul 1205 892 1599; Mul 1418 964 1600;
  Add 1205 1205 1418; Sub 1464 1464 1205; Mul 1205 881 1464; Mul 1418 959 1561; Add 1205 1205 1418;
  Sub 1106 1106 1205; Mul 1205 884 1464; Mul 1418 959 1120; Add 1205 1205 1418; Sub 1221 1221 1205;
  Mul 1205 910 1221; Mul 1418 966 1344; Add 1205 1205 1418; Mul 1418 912 1106; Mul 1466 965 1616;
  Add 1418 1418 1466; Sub 1205 1205 1418; Mul 1418 886 1464; Mul 1466 959 1222; Add 1418 1418 1466;
  Sub 1127 1127 1418; Mul 1418 914 1127; Mul 1466 968 1321; Add 1418 1418 1466; Add 1205 1205 1418;
  Mul 1418 888 1464; Mul 1466 959 1280; Add 1418 1418 1466; Sub 1701 1701 1418].
Definition casadi_f0_875 : list instruction := [
  Mul 1418 916 1701; Mul 1466 969 1025; Add 1418 1418 1466; Sub 1205 1205 1418; Mul 1418 890 1464;
  Mul 1466 959 1266; Add 1418 1418 1466; Add 1387 1387 1418; Mul 1418 918 1387; Mul 1466 970 1613;
  Add 1418 1418 1466; Add 1205 1205 1418; Mul 1418 892 1464; Mul 1466 959 1600; Add 1418 1418 1466;
  Add 1599 1599 1418; Mul 1418 920 1599; Mul 1466 971 1330; Add 1418 1418 1466; Add 1205 1205 1418;
  Mul 1418 912 1205; Mul 1466 967 1616; Add 1418 1418 1466; Add 1106 1106 1418; Mul 1418 944 1106;
  Mul 1466 972 1170; Add 1418 1418 1466; Mul 1466 910 1205; Mul 1544 967 1344; Add 1466 1466 1544;
  Sub 1221 1221 1466; Mul 1466 947 1221; Mul 1544 974 1452; Add 1466 1466 1544; Add 1418 1418 1466;
  Mul 1466 914 1205; Mul 1544 967 1321; Add 1466 1466 1544; Sub 1127 1127 1466; Mul 1466 949 1127;
  Mul 1544 975 1352; Add 1466 1466 1544; Add 1418 1418 1466; Mul 1466 916 1205; Mul 1544 967 1025;
  Add 1466 1466 1544; Add 1701 1701 1466; Mul 1466 951 1701; Mul 1544 976 1298; Add 1466 1466 1544;
  Add 1418 1418 1466; Mul 1466 918 1205; Mul 1544 967 1613; Add 1466 1466 1544; Sub 1466 1466 1387;
  Mul 1387 953 1466; Mul 1544 977 1150; Add 1387 1387 1544; Add 1418 1418 1387; Mul 1387 920 1205;
  Mul 1544 967 1330; Add 1387 1387 1544; Sub 1387 1387 1599; Mul 1599 955 1387; Mul 1544 978 1128;
  Add 1599 1599 1544; Add 1418 1418 1599; Mul 1599 944 1418; Mul 1544 973 1170; Add 1599 1599 1544;
  Sub 1106 1106 1599; Div 1599 1106 980; Mul 1106 979 1106; Mul 1544 947 1418; Mul 1373 973 1452;
  Add 1544 1544 1373; Sub 1221 1221 1544; Mul 1544 981 1221; Add 1106 1106 1544; Mul 1544 949 1418;
  Mul 1373 973 1352; Add 1544 1544 1373; Sub 1127 1127 1544; Mul 1544 982 1127; Add 1106 1106 1544;
  Mul 1544 951 1418; Mul 1373 973 1298; Add 1544 1544 1373; Sub 1701 1701 1544; Mul 1544 983 1701;
  Add 1106 1106 1544; Mul 1544 953 1418; Mul 1373 973 1150; Add 1544 1544 1373; Sub 1466 1466 1544;
  Mul 1544 984 1466; Add 1106 1106 1544; Mul 1544 955 1418; Mul 1373 973 1128; Add 1544 1544 1373;
  Sub 1387 1387 1544; Mul 1544 985 1387; Add 1106 1106 1544; Div 1106 1106 1630; Mul 1544 1629 1106;
  Sub 1599 1599 1544; Mul 1544 956 1599; Add 1329 1329 1544; Mul 1544 947 1519; Mul 1373 945 1452;
  Add 1544 1544 1373; Sub 1395 1395 1544; Mul 1544 989 1395; Div 1221 1221 980; Mul 1373 1262 1106;
  Sub 1221 1221 1373; Mul 1373 988 1221; Add 1544 1544 1373; Add 1329 1329 1544; Mul 1544 949 1519;
  Mul 1373 945 1352; Add 1544 1544 1373; Sub 1201 1201 1544; Mul 1544 991 1201; Div 1127 1127 980;
  Mul 1373 1306 1106; Sub 1127 1127 1373; Mul 1373 990 1127; Add 1544 1544 1373; Add 1329 1329 1544;
  Mul 1544 951 1519; Mul 1373 945 1298; Add 1544 1544 1373; Sub 1385 1385 1544; Mul 1544 993 1385;
  Div 1701 1701 980; Mul 1373 1626 1106; Sub 1701 1701 1373; Mul 1373 992 1701; Add 1544 1544 1373;
  Add 1329 1329 1544; Mul 1544 953 1519; Mul 1373 945 1150; Add 1544 1544 1373; Sub 1476 1476 1544;
  Mul 1544 995 1476; Div 1466 1466 980; Mul 1373 1530 1106; Sub 1466 1466 1373].
Definition casadi_f0_876 : list instruction := [
  Mul 1373 994 1466; Add 1544 1544 1373; Add 1329 1329 1544; Mul 1544 955 1519; Mul 1373 945 1128;
  Add 1544 1544 1373; Sub 1582 1582 1544; Mul 1544 997 1582; Div 1387 1387 980; Mul 1373 1472 1106;
  Sub 1387 1387 1373; Mul 1373 996 1387; Add 1544 1544 1373; Add 1329 1329 1544; Mul 1544 986 1329;
  Mul 1373 987 1599; Add 1544 1544 1373; Sub 1635 1635 1544; Div 1544 1635 999; Mul 1635 998 1635;
  Mul 1373 989 1329; Mul 1698 987 1221; Add 1373 1373 1698; Sub 1395 1395 1373; Mul 1373 1000 1395;
  Add 1635 1635 1373; Mul 1373 991 1329; Mul 1698 987 1127; Add 1373 1373 1698; Sub 1201 1201 1373;
  Mul 1373 1001 1201; Add 1635 1635 1373; Mul 1373 993 1329; Mul 1698 987 1701; Add 1373 1373 1698;
  Sub 1385 1385 1373; Mul 1373 1002 1385; Add 1635 1635 1373; Mul 1373 995 1329; Mul 1698 987 1466;
  Add 1373 1373 1698; Sub 1476 1476 1373; Mul 1373 1003 1476; Add 1635 1635 1373; Mul 1373 997 1329;
  Mul 1698 987 1387; Add 1373 1373 1698; Sub 1582 1582 1373; Mul 1373 1004 1582; Add 1635 1635 1373;
  Div 1635 1635 1095; Mul 1373 1596 1635; Sub 1544 1544 1373; Mul 1544 211 1544; Mul 1373 1005 1265;
  Sub 1544 1544 1373; Div 1395 1395 999; Mul 1373 1331 1635; Sub 1395 1395 1373; Mul 1395 779 1395;
  Mul 1373 1007 1182; Sub 1395 1395 1373; Add 1544 1544 1395; Div 1201 1201 999; Mul 1395 1080 1635;
  Sub 1201 1201 1395; Mul 1201 767 1201; Mul 1395 1008 1171; Add 1201 1201 1395; Add 1544 1544 1201;
  Div 1385 1385 999; Mul 1201 1056 1635; Sub 1385 1385 1201; Mul 1385 775 1385; Mul 1201 1009 1470;
  Sub 1385 1385 1201; Add 1544 1544 1385; Div 1476 1476 999; Mul 1385 1068 1635; Sub 1476 1476 1385;
  Mul 1476 815 1476; Mul 1385 1010 1052; Add 1476 1476 1385; Add 1544 1544 1476; Div 1582 1582 999;
  Mul 1476 1178 1635; Sub 1582 1582 1476; Mul 1582 833 1582; Mul 1476 1011 1514; Add 1582 1582 1476;
  Add 1544 1544 1582; Div 1544 1544 999; Mul 1635 1033 1635; Sub 1544 1544 1635; Mul 1635 756 1544;
  Add 1555 1555 1635; Sub 1364 1364 1555; Mul 1705 1012 1705; Mul 1599 211 1599; Mul 1555 986 1265;
  Sub 1599 1599 1555; Mul 1221 779 1221; Mul 1555 989 1182; Sub 1221 1221 1555; Add 1599 1599 1221;
  Mul 1127 767 1127; Mul 1221 991 1171; Add 1127 1127 1221; Add 1599 1599 1127; Mul 1701 775 1701;
  Mul 1127 993 1470; Sub 1701 1701 1127; Add 1599 1599 1701; Mul 1466 815 1466; Mul 1701 995 1052;
  Add 1466 1466 1701; Add 1599 1599 1466; Mul 1387 833 1387; Mul 1466 997 1514; Add 1387 1387 1466;
  Add 1599 1599 1387; Mul 1329 1006 1329; Mul 1387 987 1544; Add 1329 1329 1387; Sub 1599 1599 1329;
  Div 1599 1599 980; Mul 1106 1534 1106; Sub 1599 1599 1106; Mul 1106 957 1599; Add 1705 1705 1106;
  Sub 1364 1364 1705; Mul 1577 1013 1577; Mul 1170 211 1170; Mul 1705 944 1265; Sub 1170 1170 1705;
  Mul 1452 779 1452; Mul 1705 947 1182; Sub 1452 1452 1705; Add 1170 1170 1452; Mul 1352 767 1352;
  Mul 1452 949 1171; Add 1352 1352 1452; Add 1170 1170 1352; Mul 1298 775 1298; Mul 1352 951 1470;
  Sub 1298 1298 1352; Add 1170 1170 1298; Mul 1150 815 1150; Mul 1298 953 1052].
Definition casadi_f0_877 : list instruction := [
  Add 1150 1150 1298; Add 1170 1170 1150; Mul 1128 833 1128; Mul 1150 955 1514; Add 1128 1128 1150;
  Add 1170 1170 1128; Mul 1519 1006 1519; Mul 1128 945 1544; Add 1519 1519 1128; Sub 1170 1170 1519;
  Mul 1418 1012 1418; Mul 1519 973 1599; Add 1418 1418 1519; Sub 1170 1170 1418; Div 1170 1170 938;
  Mul 1269 1397 1269; Sub 1170 1170 1269; Mul 1269 922 1170; Add 1577 1577 1269; Sub 1364 1364 1577;
  Mul 1115 1014 1115; Mul 1344 779 1344; Mul 1577 910 1182; Sub 1344 1344 1577; Mul 1616 211 1616;
  Mul 1577 912 1265; Sub 1616 1616 1577; Sub 1344 1344 1616; Mul 1321 767 1321; Mul 1616 914 1171;
  Add 1321 1321 1616; Add 1344 1344 1321; Mul 1025 775 1025; Mul 1321 916 1470; Sub 1025 1025 1321;
  Sub 1344 1344 1025; Mul 1613 815 1613; Mul 1025 918 1052; Add 1613 1613 1025; Sub 1344 1344 1613;
  Mul 1330 833 1330; Mul 1613 920 1514; Add 1330 1330 1613; Sub 1344 1344 1330; Mul 1202 1006 1202;
  Mul 1330 911 1544; Add 1202 1202 1330; Sub 1344 1344 1202; Mul 1205 1012 1205; Mul 1202 967 1599;
  Add 1205 1205 1202; Sub 1344 1344 1205; Mul 1307 1013 1307; Mul 1205 932 1170; Add 1307 1307 1205;
  Sub 1344 1344 1307; Div 1344 1344 905; Mul 1408 1553 1408; Sub 1344 1344 1408; Mul 1408 895 1344;
  Add 1115 1115 1408; Sub 1364 1364 1115; Mul 1374 1015 1374; Mul 1561 211 1561; Mul 1265 881 1265;
  Sub 1561 1561 1265; Mul 1120 779 1120; Mul 1182 884 1182; Sub 1120 1120 1182; Add 1561 1561 1120;
  Mul 1222 767 1222; Mul 1171 886 1171; Add 1222 1222 1171; Add 1561 1561 1222; Mul 1280 775 1280;
  Mul 1470 888 1470; Sub 1280 1280 1470; Add 1561 1561 1280; Mul 1266 815 1266; Mul 1052 890 1052;
  Add 1266 1266 1052; Add 1561 1561 1266; Mul 1600 833 1600; Mul 1514 892 1514; Add 1600 1600 1514;
  Add 1561 1561 1600; Mul 1609 1006 1609; Mul 1600 882 1544; Add 1609 1609 1600; Sub 1561 1561 1609;
  Mul 1464 1012 1464; Mul 1609 959 1599; Add 1464 1464 1609; Sub 1561 1561 1464; Mul 1314 1013 1314;
  Mul 1464 924 1170; Add 1314 1314 1464; Sub 1561 1561 1314; Mul 1531 1014 1531; Mul 1314 897 1344;
  Add 1531 1531 1314; Sub 1561 1561 1531; Div 1561 1561 65; Mul 1356 1623 1356; Sub 1561 1561 1356;
  Mul 1356 875 1561; Add 1374 1374 1356; Sub 1364 1364 1374; Div 1364 1364 92; Mul 1301 759 1301;
  Sub 1364 1364 1301; Add 1309 1309 1364; Out 2 42 1309; Add 1377 1377 1561; Out 2 43 1377; Sub 1344 1344 1183;
  Out 2 44 1344; Add 1076 1076 1170; Out 2 45 1076; Add 1028 1028 1599; Out 2 46 1028; Add 1544 1056 1544;
  Out 2 47 1544; Arg 1544 2 54; Out 2 48 1544; Arg 1028 2 55; Out 2 49 1028; Arg 1599 2 56; Out 2 50 1599;
  Arg 1076 2 57; Out 2 51 1076; Arg 1170 2 58; Out 2 52 1170; Arg 1344 2 59; Out 2 53 1344; Mul 1183 756 1068;
  Sub 1183 761 1183; Mul 1377 987 1068; Sub 1377 995 1377; Div 1377 1377 980; Mul 1561 957 1377;
  Sub 1183 1183 1561; Mul 1561 945 1068; Sub 1561 953 1561; Mul 1309 973 1377; Sub 1561 1561 1309;
  Div 1561 1561 938; Mul 1309 922 1561; Sub 1183 1183 1309].
Definition casadi_f0_878 : list instruction := [
  Mul 1309 911 1068; Add 1309 918 1309; Mul 1364 967 1377; Add 1309 1309 1364; Mul 1364 932 1561;
  Add 1309 1309 1364; Div 1309 1309 905; Mul 1364 895 1309; Add 1183 1183 1364; Mul 1364 882 1068;
  Sub 1364 890 1364; Mul 1301 959 1377; Sub 1364 1364 1301; Mul 1301 924 1561; Sub 1364 1364 1301;
  Mul 1301 897 1309; Add 1364 1364 1301; Div 1364 1364 65; Mul 1301 875 1364; Sub 1183 1183 1301;
  Div 1183 1183 92; Arg 1301 2 50; Mul 1374 8 1301; Mul 1356 10 1374; Arg 1531 2 53; Mul 1314 16 1531;
  Mul 1464 21 1314; Mul 1531 15 1531; Mul 1609 18 1531; Mul 1600 14 1314; Add 1609 1609 1600; Mul 1600 15 1609;
  Sub 1464 1464 1600; Mul 1600 18 1314; Mul 1514 14 1531; Sub 1600 1600 1514; Mul 1600 16 1600;
  Mul 1514 17 1531; Sub 1600 1600 1514; Sub 1514 1464 1600; Mul 1266 28 1531; Mul 1052 26 1314;
  Add 1266 1266 1052; Mul 1052 1031 1266; Mul 1280 28 1314; Mul 1470 26 1531; Sub 1280 1280 1470;
  Mul 1470 29 1280; Sub 1222 1052 1470; Mul 1222 20 1222; Add 1514 1514 1222; Mul 1470 20 1470;
  Add 1464 1464 1470; Add 1514 1514 1464; Mul 1052 20 1052; Add 1600 1600 1052; Add 1600 1600 1464;
  Add 1052 1514 1600; Mul 1600 19 1600; Arg 1470 2 52; Mul 1222 35 1470; Mul 1171 30 1222; Sub 1600 1600 1171;
  Mul 1470 19 1470; Mul 1171 41 1470; Mul 1120 42 1314; Mul 1182 40 1531; Sub 1120 1120 1182; Mul 1182 43 1314;
  Sub 1120 1120 1182; Mul 1182 44 1280; Add 1120 1120 1182; Mul 1182 35 1120; Add 1171 1171 1182;
  Sub 1600 1600 1171; Mul 1171 19 1600; Mul 1182 38 1222; Sub 1171 1171 1182; Mul 1120 19 1120;
  Mul 1182 41 1222; Sub 1120 1120 1182; Mul 1182 12 1470; Mul 1514 35 1514; Add 1182 1182 1514;
  Sub 1120 1120 1182; Mul 1182 35 1120; Mul 1514 46 1470; Add 1182 1182 1514; Sub 1171 1171 1182;
  Sub 1052 1052 1171; Sub 1052 1052 1464; Mul 1182 50 1266; Mul 1514 1039 1182; Mul 1265 50 1280;
  Mul 1115 19 1265; Mul 1408 49 1222; Sub 1115 1115 1408; Mul 1408 51 1470; Sub 1115 1115 1408;
  Mul 1408 1041 1115; Sub 1307 1514 1408; Mul 1307 37 1307; Add 1052 1052 1307; Mul 1307 49 1470;
  Mul 1205 35 1265; Add 1307 1307 1205; Mul 1205 51 1222; Sub 1307 1307 1205; Mul 1205 64 1307;
  Add 1408 1205 1408; Mul 1408 37 1408; Add 1408 1464 1408; Add 1052 1052 1408; Mul 1202 43 1531;
  Mul 1330 42 1531; Mul 1613 40 1314; Add 1330 1330 1613; Sub 1202 1202 1330; Mul 1330 44 1266;
  Sub 1202 1202 1330; Mul 1330 67 1202; Mul 1613 19 1330; Mul 1025 71 1222; Sub 1613 1613 1025;
  Mul 1025 75 1470; Mul 1609 16 1609; Mul 1321 21 1531; Add 1609 1609 1321; Mul 1266 74 1266; Mul 1280 20 1280;
  Mul 1280 34 1280; Sub 1266 1266 1280; Add 1609 1609 1266; Add 1266 1609 1609; Mul 1280 35 1266;
  Sub 1025 1025 1280; Add 1613 1613 1025; Mul 1025 73 1470; Mul 1280 35 1609; Sub 1025 1025 1280;
  Mul 1280 19 1202; Mul 1321 70 1222; Sub 1280 1280 1321; Add 1025 1025 1280; Sub 1613 1613 1025;
  Mul 1025 76 1182; Mul 1280 37 1307; Mul 1321 57 1280; Sub 1025 1025 1321].
Definition casadi_f0_879 : list instruction := [
  Sub 1613 1613 1025; Mul 1025 67 1613; Mul 1025 66 1025; Arg 1321 2 51; Mul 1616 53 1321; Mul 1577 77 1616;
  Sub 1025 1025 1577; Mul 1321 66 1321; Mul 1577 11 1321; Mul 1269 53 1052; Add 1577 1577 1269;
  Sub 1025 1025 1577; Mul 1577 53 1025; Mul 1269 78 1321; Add 1577 1577 1269; Add 1052 1052 1577;
  Sub 1052 1052 1408; Mul 1269 87 1616; Mul 1418 83 1182; Mul 1519 66 1418; Add 1269 1269 1519;
  Mul 1519 88 1321; Mul 1307 83 1307; Mul 1128 53 1307; Add 1519 1519 1128; Add 1269 1269 1519;
  Mul 1519 1054 1269; Mul 1128 83 1115; Mul 1150 1058 1128; Sub 1298 1519 1150; Mul 1298 80 1298;
  Add 1052 1052 1298; Add 1408 1408 1577; Mul 1577 66 1307; Mul 1298 88 1616; Sub 1577 1577 1298;
  Mul 1298 87 1321; Mul 1352 53 1418; Sub 1298 1298 1352; Add 1577 1577 1298; Mul 1298 93 1577;
  Add 1150 1298 1150; Mul 1150 80 1150; Add 1408 1408 1150; Add 1052 1052 1408; Mul 1150 9 1052;
  Add 1356 1356 1150; Mul 1025 66 1025; Mul 1150 78 1616; Sub 1025 1025 1150; Sub 1025 1025 1613;
  Mul 1613 72 1269; Mul 1150 80 1577; Mul 1352 63 1150; Sub 1613 1613 1352; Sub 1025 1025 1613;
  Mul 1613 67 1025; Mul 1613 8 1613; Mul 1301 9 1301; Mul 1352 97 1301; Sub 1613 1613 1352; Add 1356 1356 1613;
  Mul 1613 9 1356; Mul 1352 84 1374; Add 1613 1613 1352; Sub 1352 1613 1408; Mul 1577 104 1577; Mul 1452 8 1577;
  Mul 1705 103 1301; Sub 1452 1452 1705; Mul 1705 105 1374; Mul 1106 104 1269; Mul 1329 9 1106;
  Sub 1705 1705 1329; Sub 1452 1452 1705; Mul 1705 33 1452; Mul 1329 104 1128; Mul 1387 1066 1329;
  Add 1466 1705 1387; Mul 1466 100 1466; Sub 1352 1352 1466; Mul 1356 8 1356; Mul 1466 84 1301;
  Sub 1356 1356 1466; Sub 1356 1356 1025; Mul 1025 103 1374; Mul 1466 9 1577; Add 1025 1025 1466;
  Mul 1466 105 1301; Mul 1701 8 1106; Add 1466 1466 1701; Sub 1025 1025 1466; Mul 1466 96 1025;
  Mul 1701 100 1452; Mul 1127 117 1701; Sub 1466 1466 1127; Add 1356 1356 1466; Mul 1356 67 1356;
  Mul 1356 114 1356; Arg 1466 2 49; Mul 1127 113 1466; Mul 1221 116 1127; Sub 1356 1356 1221; Mul 1466 114 1466;
  Mul 1221 119 1466; Sub 1052 1052 1613; Sub 1052 1052 1408; Mul 1408 1044 1025; Sub 1387 1408 1387;
  Mul 1387 100 1387; Add 1052 1052 1387; Sub 1052 1052 1352; Mul 1052 113 1052; Add 1221 1221 1052;
  Sub 1356 1356 1221; Mul 1356 113 1356; Mul 1221 118 1466; Add 1356 1356 1221; Sub 1352 1352 1356;
  Mul 1452 120 1452; Mul 1356 114 1452; Mul 1221 60 1127; Sub 1356 1356 1221; Mul 1221 121 1466;
  Mul 1052 120 1025; Mul 1387 113 1052; Add 1221 1221 1387; Add 1356 1356 1221; Mul 1221 112 1356;
  Mul 1387 120 1329; Mul 1613 123 1387; Add 1221 1221 1613; Mul 1221 99 1221; Sub 1352 1352 1221;
  Mul 1356 125 1356; Mul 1356 110 1356; Mul 1221 125 1387; Mul 1221 126 1221; Add 1356 1356 1221;
  Mul 1356 122 1356; Add 1352 1352 1356; Div 1356 1352 92; Mul 1352 6 1352; Mul 1221 130 1374; Mul 1120 19 1120;
  Mul 1613 46 1222; Sub 1120 1120 1613; Mul 1600 35 1600; Mul 1613 38 1470].
Definition casadi_f0_880 : list instruction := [
  Add 1600 1600 1613; Add 1120 1120 1600; Mul 1280 52 1280; Mul 1600 76 1115; Add 1280 1280 1600;
  Add 1120 1120 1280; Mul 1280 66 1120; Mul 1600 129 1616; Sub 1280 1280 1600; Mul 1600 132 1321;
  Mul 1613 70 1470; Mul 1555 35 1202; Add 1613 1613 1555; Mul 1555 73 1222; Mul 1635 19 1609;
  Add 1555 1555 1635; Add 1613 1613 1555; Mul 1266 19 1266; Mul 1555 75 1222; Add 1266 1266 1555;
  Mul 1330 35 1330; Mul 1555 71 1470; Add 1330 1330 1555; Add 1266 1266 1330; Sub 1613 1613 1266;
  Mul 1266 133 1182; Mul 1115 37 1115; Mul 1115 57 1115; Sub 1266 1266 1115; Sub 1613 1613 1266;
  Mul 1266 53 1613; Add 1600 1600 1266; Add 1280 1280 1600; Mul 1150 27 1150; Mul 1600 72 1128;
  Add 1150 1150 1600; Add 1280 1280 1150; Mul 1150 9 1280; Add 1221 1221 1150; Add 1150 1613 1613;
  Mul 1150 66 1150; Mul 1600 136 1616; Sub 1150 1150 1600; Mul 1600 129 1321; Mul 1266 53 1120;
  Add 1600 1600 1266; Sub 1150 1150 1600; Mul 1600 66 1613; Mul 1266 132 1616; Sub 1600 1600 1266;
  Sub 1150 1150 1600; Mul 1269 138 1269; Mul 1600 80 1128; Mul 1600 63 1600; Sub 1269 1269 1600;
  Sub 1150 1150 1269; Add 1269 1150 1150; Mul 1269 8 1269; Mul 1600 139 1301; Sub 1269 1269 1600;
  Add 1221 1221 1269; Mul 1269 8 1150; Mul 1600 137 1301; Sub 1269 1269 1600; Sub 1221 1221 1269;
  Mul 1025 140 1025; Mul 1269 100 1329; Mul 1269 117 1269; Sub 1025 1025 1269; Add 1221 1221 1025;
  Mul 1025 141 1387; Mul 1025 121 1025; Mul 1269 142 1052; Add 1025 1025 1269; Sub 1221 1221 1025;
  Mul 1221 114 1221; Mul 1025 134 1127; Sub 1221 1221 1025; Mul 1025 145 1466; Mul 1269 8 1280;
  Mul 1600 130 1301; Sub 1269 1269 1600; Mul 1600 137 1374; Mul 1266 9 1150; Add 1600 1600 1266;
  Sub 1269 1269 1600; Mul 1701 111 1701; Mul 1600 96 1329; Add 1701 1701 1600; Add 1269 1269 1701;
  Mul 1701 141 1452; Mul 1701 124 1701; Mul 1387 146 1387; Add 1701 1701 1387; Sub 1269 1269 1701;
  Mul 1269 113 1269; Add 1025 1025 1269; Sub 1221 1221 1025; Mul 1025 1073 1221; Add 1352 1352 1025;
  Mul 1025 150 1466; Mul 1269 149 1374; Mul 1701 148 1329; Mul 1387 147 1106; Mul 1600 109 1387;
  Sub 1701 1701 1600; Add 1150 1150 1701; Mul 1701 9 1150; Add 1269 1269 1701; Mul 1329 151 1329;
  Mul 1701 147 1577; Mul 1600 109 1701; Add 1329 1329 1600; Add 1280 1280 1329; Mul 1329 8 1280;
  Mul 1600 152 1301; Sub 1329 1329 1600; Sub 1269 1269 1329; Mul 1329 148 1374; Mul 1600 9 1387;
  Sub 1329 1329 1600; Mul 1600 8 1701; Mul 1266 151 1301; Sub 1600 1600 1266; Sub 1329 1329 1600;
  Mul 1600 108 1329; Add 1269 1269 1600; Mul 1269 113 1269; Add 1025 1025 1269; Mul 1269 152 1374;
  Mul 1280 9 1280; Add 1269 1269 1280; Mul 1150 8 1150; Mul 1280 149 1301; Sub 1150 1150 1280;
  Add 1269 1269 1150; Mul 1150 151 1374; Mul 1280 9 1701; Add 1150 1150 1280; Mul 1280 148 1301;
  Mul 1600 8 1387; Add 1280 1280 1600; Sub 1150 1150 1280; Mul 1150 108 1150; Add 1269 1269 1150;
  Mul 1269 114 1269; Mul 1150 155 1127; Sub 1269 1269 1150; Add 1025 1025 1269].
Definition casadi_f0_881 : list instruction := [
  Mul 1269 1050 1025; Add 1352 1352 1269; Mul 1269 159 1374; Mul 1150 156 1307; Mul 1150 82 1150;
  Mul 1280 157 1128; Add 1150 1150 1280; Sub 1120 1120 1150; Mul 1150 66 1120; Mul 1280 158 1616;
  Sub 1150 1150 1280; Mul 1280 161 1321; Mul 1128 156 1128; Mul 1128 87 1128; Mul 1600 160 1418;
  Sub 1128 1128 1600; Sub 1613 1613 1128; Mul 1128 53 1613; Add 1280 1280 1128; Add 1150 1150 1280;
  Mul 1280 9 1150; Add 1269 1269 1280; Mul 1613 66 1613; Mul 1280 161 1616; Sub 1613 1613 1280;
  Mul 1280 158 1321; Mul 1120 53 1120; Add 1280 1280 1120; Sub 1613 1613 1280; Mul 1280 8 1613;
  Mul 1120 163 1301; Sub 1280 1280 1120; Add 1269 1269 1280; Mul 1280 167 1321; Mul 1120 166 1307;
  Mul 1128 53 1120; Add 1280 1280 1128; Mul 1128 164 1616; Mul 1600 156 1418; Mul 1266 66 1600;
  Add 1128 1128 1266; Sub 1280 1280 1128; Mul 1128 8 1280; Mul 1266 165 1301; Sub 1128 1128 1266;
  Mul 1266 169 1374; Mul 1120 66 1120; Mul 1115 167 1616; Sub 1120 1120 1115; Mul 1115 164 1321;
  Mul 1600 53 1600; Sub 1115 1115 1600; Sub 1120 1120 1115; Mul 1115 9 1120; Add 1266 1266 1115;
  Sub 1128 1128 1266; Mul 1128 108 1128; Sub 1269 1269 1128; Mul 1269 114 1269; Mul 1128 162 1127;
  Sub 1269 1269 1128; Mul 1128 170 1466; Mul 1150 8 1150; Mul 1266 159 1301; Sub 1150 1150 1266;
  Mul 1266 163 1374; Mul 1613 9 1613; Add 1266 1266 1613; Sub 1150 1150 1266; Mul 1266 165 1374;
  Mul 1613 9 1280; Add 1266 1266 1613; Mul 1613 8 1120; Mul 1115 169 1301; Sub 1613 1613 1115;
  Add 1266 1266 1613; Mul 1613 108 1266; Add 1150 1150 1613; Mul 1150 113 1150; Add 1128 1128 1150;
  Sub 1269 1269 1128; Mul 1128 1070 1269; Add 1352 1352 1128; Mul 1128 179 1374; Mul 1150 177 1321;
  Mul 1613 174 1265; Mul 1265 173 1265; Mul 1115 49 1265; Add 1613 1613 1115; Add 1613 1613 1464;
  Mul 1115 174 1470; Mul 1600 35 1265; Add 1115 1115 1600; Mul 1600 176 1222; Sub 1115 1115 1600;
  Mul 1600 62 1115; Mul 1330 176 1470; Mul 1555 19 1265; Mul 1635 174 1222; Sub 1555 1555 1635;
  Sub 1330 1330 1555; Mul 1555 48 1330; Sub 1600 1600 1555; Add 1600 1613 1600; Mul 1555 53 1600;
  Add 1150 1150 1555; Mul 1555 176 1182; Sub 1202 1202 1555; Mul 1555 19 1202; Mul 1635 180 1222;
  Sub 1555 1555 1635; Mul 1635 182 1470; Mul 1265 56 1265; Mul 1182 174 1182; Sub 1265 1265 1182;
  Sub 1265 1265 1609; Mul 1609 35 1265; Add 1635 1635 1609; Add 1555 1555 1635; Mul 1635 55 1115;
  Add 1555 1555 1635; Mul 1635 66 1555; Mul 1609 181 1616; Sub 1635 1635 1609; Sub 1150 1150 1635;
  Mul 1635 86 1115; Sub 1150 1150 1635; Mul 1635 9 1150; Add 1128 1128 1635; Mul 1635 181 1321;
  Mul 1555 53 1555; Add 1635 1635 1555; Mul 1600 66 1600; Mul 1555 177 1616; Sub 1600 1600 1555;
  Add 1635 1635 1600; Mul 1600 91 1115; Add 1635 1635 1600; Mul 1600 8 1635; Mul 1555 184 1301;
  Sub 1600 1600 1555; Add 1128 1128 1600; Mul 1115 102 1115; Mul 1600 66 1330; Mul 1555 178 1616;
  Sub 1600 1600 1555; Mul 1555 8 1600; Mul 1609 185 1301; Sub 1555 1555 1609].
Definition casadi_f0_882 : list instruction := [
  Mul 1609 187 1374; Mul 1182 178 1321; Mul 1582 53 1330; Add 1182 1182 1582; Mul 1582 9 1182;
  Add 1609 1609 1582; Add 1555 1555 1609; Mul 1555 108 1555; Sub 1115 1115 1555; Add 1128 1128 1115;
  Mul 1128 114 1128; Mul 1115 183 1127; Sub 1128 1128 1115; Mul 1115 186 1466; Mul 1150 8 1150;
  Mul 1555 179 1301; Sub 1150 1150 1555; Mul 1555 184 1374; Mul 1635 9 1635; Add 1555 1555 1635;
  Sub 1150 1150 1555; Mul 1555 185 1374; Mul 1635 9 1600; Add 1555 1555 1635; Mul 1635 8 1182;
  Mul 1609 187 1301; Sub 1635 1635 1609; Sub 1555 1555 1635; Mul 1635 108 1555; Add 1150 1150 1635;
  Mul 1150 113 1150; Add 1115 1115 1150; Sub 1128 1128 1115; Mul 1115 1059 1128; Add 1352 1352 1115;
  Mul 1115 199 1374; Mul 1150 196 1470; Mul 1635 197 1314; Mul 1609 195 1531; Sub 1635 1635 1609;
  Mul 1609 190 1531; Mul 1582 192 1314; Add 1609 1609 1582; Mul 1582 198 1609; Add 1635 1635 1582;
  Mul 1582 35 1635; Add 1150 1150 1582; Mul 1582 189 1222; Mul 1476 25 1609; Mul 1385 190 1314;
  Mul 1201 192 1531; Sub 1385 1385 1201; Mul 1201 32 1385; Add 1476 1476 1201; Mul 1201 19 1476;
  Add 1582 1582 1201; Sub 1150 1150 1582; Mul 1582 48 1609; Mul 1201 19 1385; Mul 1395 194 1222;
  Sub 1201 1201 1395; Mul 1395 55 1201; Add 1582 1582 1395; Sub 1150 1150 1582; Mul 1582 66 1150;
  Mul 1395 193 1616; Sub 1582 1582 1395; Mul 1395 202 1321; Mul 1373 198 1385; Mul 1698 197 1531;
  Mul 1393 195 1314; Add 1698 1698 1393; Sub 1373 1373 1698; Mul 1698 62 1201; Mul 1393 194 1470;
  Mul 1385 35 1385; Add 1393 1393 1385; Mul 1385 48 1393; Sub 1698 1698 1385; Add 1698 1373 1698;
  Mul 1385 53 1698; Add 1395 1395 1385; Add 1582 1582 1395; Mul 1395 86 1201; Sub 1582 1582 1395;
  Mul 1395 9 1582; Add 1115 1115 1395; Mul 1698 66 1698; Mul 1395 202 1616; Sub 1698 1698 1395;
  Mul 1395 193 1321; Mul 1150 53 1150; Add 1395 1395 1150; Sub 1698 1698 1395; Mul 1395 91 1201;
  Add 1698 1698 1395; Mul 1395 8 1698; Mul 1150 205 1301; Sub 1395 1395 1150; Add 1115 1115 1395;
  Mul 1201 102 1201; Mul 1395 66 1393; Mul 1150 203 1616; Sub 1395 1395 1150; Mul 1150 191 1321;
  Mul 1385 53 1609; Sub 1150 1150 1385; Add 1395 1395 1150; Mul 1150 8 1395; Mul 1385 206 1301;
  Sub 1150 1150 1385; Mul 1385 208 1374; Mul 1412 191 1616; Mul 1351 66 1609; Add 1412 1412 1351;
  Mul 1351 203 1321; Mul 1681 53 1393; Add 1351 1351 1681; Add 1412 1412 1351; Mul 1351 9 1412;
  Sub 1385 1385 1351; Sub 1150 1150 1385; Mul 1150 108 1150; Sub 1201 1201 1150; Add 1115 1115 1201;
  Mul 1115 114 1115; Mul 1201 204 1127; Sub 1115 1115 1201; Mul 1201 207 1466; Mul 1582 8 1582;
  Mul 1150 199 1301; Sub 1582 1582 1150; Mul 1150 205 1374; Mul 1698 9 1698; Add 1150 1150 1698;
  Sub 1582 1582 1150; Mul 1150 206 1374; Mul 1698 9 1395; Add 1150 1150 1698; Mul 1698 208 1301;
  Mul 1385 8 1412; Add 1698 1698 1385; Sub 1150 1150 1698; Mul 1698 108 1150; Add 1582 1582 1698;
  Mul 1582 113 1582; Add 1201 1201 1582; Sub 1115 1115 1201; Mul 1201 1043 1115].
Definition casadi_f0_883 : list instruction := [
  Add 1352 1352 1201; Div 1352 1352 1085; Mul 1201 1072 1352; Sub 1356 1356 1201; Mul 1201 211 1356;
  Mul 1582 216 1466; Arg 1698 2 48; Mul 1385 215 1698; Mul 1351 113 1385; Sub 1582 1582 1351; Mul 1351 218 1582;
  Mul 1681 114 1544; Mul 1597 0 1127; Sub 1681 1681 1597; Mul 1597 217 1681; Add 1351 1351 1597;
  Mul 1698 216 1698; Mul 1597 1 1698; Mul 1601 215 1028; Add 1597 1597 1601; Sub 1351 1351 1597;
  Mul 1597 0 1466; Mul 1601 113 1544; Add 1597 1597 1601; Mul 1601 220 1597; Mul 1187 114 1385;
  Mul 1323 216 1127; Add 1187 1187 1323; Mul 1323 221 1187; Sub 1601 1601 1323; Sub 1351 1351 1601;
  Mul 1601 214 1351; Mul 1323 213 1601; Mul 1323 212 1323; Mul 1420 225 1323; Mul 1371 114 1698;
  Mul 1486 215 1127; Sub 1371 1371 1486; Mul 1486 101 1371; Mul 1303 107 1385; Sub 1486 1486 1303;
  Mul 1303 223 1486; Add 1454 1420 1303; Mul 1338 216 1028; Mul 1421 1 1385; Sub 1338 1338 1421;
  Mul 1421 113 1698; Mul 1081 215 1466; Add 1421 1421 1081; Mul 1081 218 1421; Mul 1349 228 1681;
  Add 1081 1081 1349; Add 1338 1338 1081; Mul 1081 221 1371; Mul 1349 224 1597; Add 1081 1081 1349;
  Sub 1338 1338 1081; Mul 1081 214 1338; Mul 1349 213 1081; Mul 1349 212 1349; Mul 1324 231 1349;
  Mul 1302 101 1187; Mul 1673 107 1698; Add 1302 1302 1673; Mul 1673 230 1302; Sub 1324 1324 1673;
  Sub 1673 1454 1324; Add 1303 1303 1420; Sub 1324 1303 1324; Add 1420 1673 1324; Mul 1291 144 1466;
  Mul 1164 215 1291; Mul 1593 240 1698; Add 1164 1164 1593; Mul 1593 236 1127; Mul 1049 238 1466;
  Add 1593 1593 1049; Mul 1049 220 1593; Mul 1674 237 1187; Add 1049 1049 1674; Sub 1164 1164 1049;
  Mul 1049 115 1385; Add 1164 1164 1049; Mul 1049 212 1302; Mul 1674 242 1049; Mul 1167 101 1466;
  Mul 1650 241 1167; Add 1674 1674 1650; Add 1674 1164 1674; Mul 1650 244 1674; Mul 1697 213 1338;
  Mul 1585 243 1697; Add 1350 1650 1585; Mul 1611 237 1371; Mul 1215 224 1593; Sub 1611 1611 1215;
  Mul 1291 216 1291; Mul 1215 240 1385; Sub 1291 1291 1215; Sub 1611 1611 1291; Mul 1291 115 1698;
  Sub 1611 1611 1291; Mul 1291 212 1486; Mul 1291 242 1291; Mul 1215 247 1167; Sub 1291 1291 1215;
  Sub 1291 1611 1291; Mul 1215 249 1291; Mul 1399 213 1351; Mul 1378 248 1399; Add 1575 1215 1378;
  Sub 1510 1350 1575; Sub 1420 1420 1510; Add 1378 1378 1215; Add 1585 1585 1650; Sub 1650 1378 1585;
  Add 1420 1420 1650; Mul 1650 9 1582; Mul 1215 217 1374; Add 1650 1650 1215; Mul 1215 8 1187;
  Mul 1510 220 1301; Add 1215 1215 1510; Sub 1650 1650 1215; Mul 1215 254 1650; Mul 1510 218 1374;
  Mul 1145 9 1681; Add 1510 1510 1145; Mul 1145 8 1597; Mul 1695 221 1301; Sub 1145 1145 1695;
  Sub 1510 1510 1145; Mul 1145 253 1510; Add 1215 1215 1145; Mul 1582 8 1582; Mul 1145 217 1301;
  Sub 1582 1582 1145; Mul 1145 220 1374; Mul 1695 9 1187; Sub 1145 1145 1695; Sub 1582 1582 1145;
  Mul 1145 257 1582; Mul 1695 221 1374; Mul 1564 9 1597; Add 1695 1695 1564; Mul 1564 8 1681; Mul 1513 218 1301;
  Sub 1564 1564 1513; Add 1695 1695 1564].
Definition casadi_f0_884 : list instruction := [
  Mul 1564 256 1695; Add 1145 1145 1564; Mul 1564 259 1698; Sub 1513 1028 1599; Mul 1618 215 1513;
  Add 1564 1564 1618; Sub 1145 1145 1564; Add 1215 1215 1145; Mul 1145 213 1215; Mul 1564 276 1145;
  Mul 1618 114 1374; Mul 1144 9 1127; Sub 1618 1618 1144; Mul 1144 8 1466; Mul 1296 113 1301;
  Sub 1144 1144 1296; Sub 1618 1618 1144; Mul 1144 260 1618; Mul 1296 9 1466; Mul 1082 113 1374;
  Add 1296 1296 1082; Mul 1082 8 1127; Mul 1636 114 1301; Add 1082 1082 1636; Sub 1296 1296 1082;
  Mul 1082 263 1296; Add 1144 1144 1082; Mul 1082 265 1144; Mul 1636 8 1371; Mul 1268 224 1301;
  Sub 1636 1636 1268; Mul 1268 9 1421; Mul 1481 228 1374; Add 1268 1268 1481; Add 1636 1636 1268;
  Mul 1268 262 1636; Add 1082 1082 1268; Mul 1268 127 1618; Mul 1481 268 1296; Add 1268 1268 1481;
  Mul 1481 216 1268; Mul 1108 267 1385; Sub 1481 1481 1108; Add 1082 1082 1481; Mul 1481 135 1650;
  Mul 1108 95 1698; Add 1481 1481 1108; Sub 1082 1082 1481; Mul 1481 102 1371; Mul 1108 108 1385;
  Sub 1481 1481 1108; Mul 1108 79 1636; Mul 1117 8 1421; Mul 1024 228 1301; Sub 1117 1117 1024; Mul 1024 9 1371;
  Mul 1177 224 1374; Add 1024 1024 1177; Sub 1117 1117 1024; Mul 1024 85 1117; Mul 1177 81 1385;
  Sub 1024 1024 1177; Add 1108 1108 1024; Add 1108 1481 1108; Mul 1024 269 1108; Mul 1024 275 1024;
  Mul 1177 79 1618; Mul 1017 85 1296; Add 1177 1177 1017; Mul 1017 102 1466; Sub 1177 1177 1017;
  Mul 1478 272 1177; Add 1024 1024 1478; Sub 1024 1082 1024; Mul 1478 258 1024; Add 1435 1564 1478;
  Mul 1097 254 1636; Mul 1560 265 1510; Add 1097 1097 1560; Mul 1560 216 1513; Mul 1547 259 1385;
  Sub 1560 1560 1547; Mul 1547 257 1117; Mul 1083 273 1695; Add 1547 1547 1083; Add 1560 1560 1547;
  Add 1097 1097 1560; Mul 1560 213 1097; Mul 1547 284 1560; Mul 1083 253 1144; Mul 1207 262 1650;
  Add 1083 1083 1207; Mul 1268 215 1268; Mul 1207 267 1698; Add 1268 1268 1207; Sub 1083 1083 1268;
  Mul 1268 95 1385; Mul 1207 135 1636; Add 1268 1268 1207; Add 1083 1083 1268; Mul 1268 79 1650;
  Mul 1207 85 1582; Mul 1137 81 1698; Sub 1207 1207 1137; Add 1268 1268 1207; Mul 1207 102 1187;
  Mul 1137 108 1698; Add 1207 1207 1137; Sub 1268 1268 1207; Mul 1137 269 1268; Mul 1098 275 1137;
  Mul 1101 283 1177; Add 1098 1098 1101; Sub 1098 1083 1098; Mul 1101 279 1098; Add 1436 1547 1101;
  Sub 1208 1435 1436; Mul 1422 292 1177; Mul 1102 288 1296; Mul 1679 287 1374; Mul 1648 108 1681;
  Mul 1168 9 1648; Add 1679 1679 1168; Mul 1168 102 1028; Mul 1645 108 1597; Add 1168 1168 1645;
  Mul 1645 8 1168; Mul 1570 289 1301; Sub 1645 1645 1570; Sub 1679 1679 1645; Mul 1645 264 1679;
  Add 1102 1102 1645; Mul 1645 291 1618; Mul 1648 8 1648; Mul 1570 287 1301; Sub 1648 1648 1570;
  Mul 1570 289 1374; Mul 1168 9 1168; Add 1570 1570 1168; Add 1648 1648 1570; Mul 1570 261 1648;
  Add 1645 1645 1570; Sub 1102 1102 1645; Mul 1645 281 1097; Mul 1570 278 1207; Sub 1645 1645 1570;
  Mul 1570 255 1481; Mul 1168 270 1215; Add 1570 1570 1168].
Definition casadi_f0_885 : list instruction := [
  Sub 1645 1645 1570; Add 1102 1102 1645; Mul 1645 213 1102; Mul 1645 269 1645; Mul 1570 275 1645;
  Add 1168 1422 1570; Mul 1113 288 1582; Mul 1665 256 1679; Add 1113 1113 1665; Mul 1665 295 1698;
  Mul 1448 102 1681; Mul 1475 215 1448; Add 1665 1665 1475; Sub 1113 1113 1665; Mul 1665 291 1650;
  Mul 1475 253 1648; Add 1665 1665 1475; Sub 1113 1113 1665; Mul 1665 296 1481; Mul 1475 254 1618;
  Mul 1657 261 1510; Add 1475 1475 1657; Mul 1657 257 1296; Mul 1090 264 1695; Add 1657 1657 1090;
  Add 1475 1475 1657; Mul 1657 270 1475; Add 1665 1665 1657; Mul 1657 274 1097; Mul 1090 278 1017;
  Sub 1657 1657 1090; Sub 1665 1665 1657; Add 1113 1113 1665; Mul 1665 213 1113; Mul 1665 269 1665;
  Mul 1657 282 1665; Mul 1090 297 1268; Add 1687 1657 1090; Mul 1252 216 1448; Mul 1238 295 1385;
  Sub 1252 1252 1238; Mul 1238 288 1117; Mul 1272 273 1679; Add 1238 1238 1272; Add 1252 1252 1238;
  Mul 1238 291 1636; Mul 1272 265 1648; Add 1238 1238 1272; Sub 1252 1252 1238; Mul 1238 274 1215;
  Mul 1272 255 1017; Sub 1238 1238 1272; Mul 1272 281 1475; Mul 1447 296 1207; Sub 1272 1272 1447;
  Sub 1238 1238 1272; Add 1252 1252 1238; Mul 1238 213 1252; Mul 1238 269 1238; Mul 1272 271 1238;
  Mul 1447 300 1108; Add 1107 1272 1447; Add 1570 1570 1422; Add 1422 1107 1570; Add 1687 1687 1422;
  Sub 1163 1168 1687; Add 1090 1090 1657; Add 1447 1447 1272; Add 1168 1447 1168; Add 1090 1090 1168;
  Sub 1570 1570 1090; Add 1163 1163 1570; Add 1101 1101 1547; Add 1478 1478 1564; Sub 1564 1101 1478;
  Add 1163 1163 1564; Sub 1208 1208 1163; Mul 1163 66 1650; Mul 1564 253 1616; Sub 1163 1163 1564;
  Mul 1564 53 1582; Mul 1547 256 1321; Add 1564 1564 1547; Sub 1163 1163 1564; Mul 1564 308 1163;
  Mul 1547 66 1510; Mul 1570 254 1616; Sub 1547 1547 1570; Mul 1570 257 1321; Mul 1272 53 1695;
  Add 1570 1570 1272; Sub 1547 1547 1570; Mul 1570 304 1547; Add 1564 1564 1570; Mul 1570 53 1650;
  Mul 1272 253 1321; Add 1570 1570 1272; Mul 1272 66 1582; Mul 1657 256 1616; Sub 1272 1272 1657;
  Add 1570 1570 1272; Mul 1272 311 1570; Mul 1657 254 1321; Mul 1620 53 1510; Add 1657 1657 1620;
  Mul 1620 66 1695; Mul 1693 257 1616; Sub 1620 1620 1693; Add 1657 1657 1620; Mul 1620 310 1657;
  Add 1272 1272 1620; Mul 1620 313 1698; Add 1693 1076 1513; Mul 1287 215 1693; Add 1620 1620 1287;
  Sub 1272 1272 1620; Add 1564 1564 1272; Mul 1272 213 1564; Mul 1620 330 1272; Mul 1287 66 1618;
  Mul 1424 261 1616; Sub 1287 1287 1424; Mul 1424 53 1296; Mul 1217 264 1321; Add 1424 1424 1217;
  Sub 1287 1287 1424; Mul 1424 314 1287; Mul 1217 53 1618; Mul 1546 261 1321; Add 1217 1217 1546;
  Mul 1546 66 1296; Mul 1121 264 1616; Sub 1546 1546 1121; Add 1217 1217 1546; Mul 1546 317 1217;
  Add 1424 1424 1546; Mul 1546 319 1424; Mul 1121 66 1636; Mul 1384 265 1616; Sub 1121 1121 1384;
  Mul 1384 53 1117; Mul 1176 273 1321; Add 1384 1384 1176; Sub 1121 1121 1384; Mul 1384 316 1121;
  Add 1546 1546 1384; Mul 1384 128 1287; Mul 1176 322 1217; Add 1384 1384 1176].
Definition casadi_f0_886 : list instruction := [
  Mul 1176 216 1384; Mul 1638 321 1385; Sub 1176 1176 1638; Add 1546 1546 1176; Mul 1176 131 1163;
  Mul 1638 68 1698; Add 1176 1176 1638; Sub 1546 1546 1176; Mul 1176 91 1636; Mul 1638 86 1117;
  Add 1176 1176 1638; Add 1176 1481 1176; Mul 1638 61 1121; Mul 1664 53 1636; Mul 1676 265 1321;
  Add 1664 1664 1676; Mul 1676 66 1117; Mul 1361 273 1616; Sub 1676 1676 1361; Add 1664 1664 1676;
  Mul 1676 54 1664; Mul 1361 47 1385; Sub 1676 1676 1361; Add 1638 1638 1676; Add 1638 1176 1638;
  Mul 1676 323 1638; Mul 1676 329 1676; Mul 1361 91 1618; Mul 1296 86 1296; Add 1361 1361 1296;
  Sub 1361 1361 1017; Mul 1296 61 1287; Mul 1055 54 1217; Add 1296 1296 1055; Add 1296 1361 1296;
  Mul 1055 326 1296; Add 1676 1676 1055; Sub 1676 1546 1676; Mul 1055 312 1676; Add 1518 1620 1055;
  Mul 1521 308 1121; Mul 1554 319 1547; Add 1521 1521 1554; Mul 1554 216 1693; Mul 1105 313 1385;
  Sub 1554 1554 1105; Mul 1105 311 1664; Mul 1154 327 1657; Add 1105 1105 1154; Add 1554 1554 1105;
  Add 1521 1521 1554; Mul 1554 213 1521; Mul 1105 338 1554; Mul 1154 304 1424; Mul 1658 316 1163;
  Add 1154 1154 1658; Mul 1384 215 1384; Mul 1658 321 1698; Add 1384 1384 1658; Sub 1154 1154 1384;
  Mul 1384 68 1385; Mul 1658 131 1121; Add 1384 1384 1658; Add 1154 1154 1384; Mul 1384 91 1650;
  Mul 1582 86 1582; Add 1384 1384 1582; Sub 1384 1384 1207; Mul 1582 61 1163; Mul 1658 54 1570;
  Mul 1281 47 1698; Sub 1658 1658 1281; Add 1582 1582 1658; Add 1582 1384 1582; Mul 1658 323 1582;
  Mul 1281 329 1658; Mul 1354 337 1296; Add 1281 1281 1354; Sub 1281 1154 1281; Mul 1354 333 1281;
  Add 1337 1105 1354; Sub 1051 1518 1337; Mul 1566 346 1296; Mul 1402 342 1287; Mul 1161 86 1513;
  Sub 1161 1161 1648; Mul 1648 66 1161; Mul 1493 341 1616; Sub 1648 1648 1493; Mul 1493 343 1321;
  Mul 1513 91 1513; Sub 1679 1679 1513; Mul 1513 53 1679; Add 1493 1493 1513; Sub 1648 1648 1493;
  Mul 1493 315 1648; Add 1402 1402 1493; Mul 1493 345 1217; Mul 1513 341 1321; Mul 1161 53 1161;
  Add 1513 1513 1161; Mul 1679 66 1679; Mul 1161 343 1616; Sub 1679 1679 1161; Add 1513 1513 1679;
  Mul 1679 318 1513; Add 1493 1493 1679; Add 1402 1402 1493; Mul 1493 332 1384; Mul 1679 335 1521;
  Add 1493 1493 1679; Mul 1679 309 1176; Mul 1161 324 1564; Add 1679 1679 1161; Sub 1493 1493 1679;
  Add 1402 1402 1493; Mul 1493 213 1402; Mul 1493 323 1493; Mul 1679 329 1493; Add 1161 1566 1679;
  Mul 1130 342 1163; Mul 1482 304 1648; Add 1130 1130 1482; Mul 1482 345 1570; Mul 1539 310 1513;
  Add 1482 1482 1539; Mul 1539 350 1698; Mul 1510 86 1510; Mul 1695 91 1695; Sub 1510 1510 1695;
  Sub 1448 1448 1510; Mul 1510 215 1448; Add 1539 1539 1510; Sub 1482 1482 1539; Add 1130 1130 1482;
  Mul 1482 349 1176; Mul 1539 308 1287; Mul 1510 315 1547; Add 1539 1539 1510; Mul 1510 311 1217;
  Mul 1695 318 1657; Add 1510 1510 1695; Add 1539 1539 1510; Mul 1510 324 1539; Add 1482 1482 1510;
  Mul 1510 332 1361; Mul 1695 328 1521; Add 1510 1510 1695; Sub 1482 1482 1510].
Definition casadi_f0_887 : list instruction := [
  Add 1130 1130 1482; Mul 1482 213 1130; Mul 1482 323 1482; Mul 1510 336 1482; Mul 1695 351 1582;
  Add 1258 1510 1695; Mul 1538 342 1121; Mul 1505 319 1648; Add 1538 1538 1505; Mul 1505 216 1448;
  Mul 1545 350 1385; Sub 1505 1505 1545; Mul 1545 345 1664; Mul 1423 327 1513; Add 1545 1545 1423;
  Add 1505 1505 1545; Add 1538 1538 1505; Mul 1505 309 1361; Mul 1545 328 1564; Add 1505 1505 1545;
  Mul 1545 349 1384; Mul 1423 335 1539; Add 1545 1545 1423; Sub 1505 1505 1545; Add 1538 1538 1505;
  Mul 1505 213 1538; Mul 1505 323 1505; Mul 1545 325 1505; Mul 1423 354 1638; Add 1322 1545 1423;
  Add 1679 1679 1566; Add 1566 1322 1679; Add 1258 1258 1566; Sub 1224 1161 1258; Add 1695 1695 1510;
  Add 1423 1423 1545; Add 1161 1423 1161; Add 1695 1695 1161; Sub 1679 1679 1695; Add 1224 1224 1679;
  Add 1354 1354 1105; Add 1055 1055 1620; Sub 1620 1354 1055; Add 1224 1224 1620; Sub 1051 1051 1224;
  Mul 1224 19 1163; Mul 1620 304 1222; Sub 1224 1224 1620; Mul 1620 35 1698; Mul 1105 215 1470;
  Add 1620 1620 1105; Add 1224 1224 1620; Mul 1620 362 1224; Mul 1105 19 1547; Mul 1679 308 1222;
  Sub 1105 1105 1679; Mul 1679 313 1470; Mul 1545 35 1693; Add 1679 1679 1545; Sub 1105 1105 1679;
  Mul 1679 358 1105; Add 1620 1620 1679; Mul 1679 35 1163; Mul 1545 304 1470; Add 1679 1679 1545;
  Mul 1545 19 1698; Mul 1510 215 1222; Sub 1545 1545 1510; Sub 1679 1679 1545; Mul 1545 365 1679;
  Mul 1510 308 1470; Mul 1691 35 1547; Add 1510 1510 1691; Mul 1691 19 1693; Mul 1315 313 1222;
  Sub 1691 1691 1315; Add 1510 1510 1691; Mul 1691 364 1510; Add 1545 1545 1691; Mul 1691 367 1570;
  Sub 1315 1657 1170; Mul 1558 310 1315; Add 1691 1691 1558; Add 1545 1545 1691; Add 1620 1620 1545;
  Mul 1545 213 1620; Mul 1691 385 1545; Mul 1558 19 1287; Mul 1253 315 1222; Sub 1558 1558 1253;
  Mul 1253 368 1558; Mul 1607 35 1287; Mul 1500 315 1470; Add 1607 1607 1500; Mul 1500 39 1607;
  Mul 1584 373 1217; Add 1500 1500 1584; Add 1253 1253 1500; Mul 1500 372 1253; Mul 1584 19 1121;
  Mul 1173 319 1222; Sub 1584 1584 1173; Mul 1173 216 1470; Mul 1578 35 1385; Sub 1173 1173 1578;
  Sub 1584 1584 1173; Mul 1173 370 1584; Add 1500 1500 1173; Mul 1173 39 1558; Mul 1578 376 1607;
  Add 1173 1173 1578; Mul 1578 377 1173; Mul 1432 35 1121; Mul 1123 319 1470; Add 1432 1432 1123;
  Mul 1123 19 1385; Mul 1254 216 1222; Add 1123 1123 1254; Sub 1432 1432 1123; Mul 1123 375 1432;
  Add 1578 1578 1123; Add 1500 1500 1578; Mul 1578 69 1679; Add 1500 1500 1578; Mul 1578 62 1121;
  Mul 1123 55 1664; Mul 1254 48 1385; Sub 1123 1123 1254; Add 1578 1578 1123; Add 1578 1176 1578;
  Mul 1123 380 1584; Mul 1254 24 1432; Mul 1174 31 1664; Add 1254 1254 1174; Add 1123 1123 1254;
  Add 1123 1578 1123; Mul 1254 378 1123; Mul 1254 384 1254; Mul 1174 62 1287; Mul 1231 55 1217;
  Add 1174 1174 1231; Add 1174 1361 1174; Mul 1231 380 1558; Mul 1311 24 1607; Mul 1267 31 1217;
  Add 1311 1311 1267; Add 1231 1231 1311; Add 1231 1174 1231; Mul 1311 382 1231].
Definition casadi_f0_888 : list instruction := [
  Add 1254 1254 1311; Sub 1254 1500 1254; Mul 1311 366 1254; Add 1267 1691 1311; Mul 1380 362 1584;
  Mul 1206 372 1105; Add 1380 1380 1206; Mul 1206 365 1432; Mul 1583 377 1510; Add 1206 1206 1583;
  Mul 1583 367 1664; Mul 1335 327 1315; Add 1583 1583 1335; Add 1206 1206 1583; Add 1380 1380 1206;
  Mul 1206 213 1380; Mul 1583 393 1206; Mul 1335 358 1253; Mul 1415 370 1224; Add 1335 1335 1415;
  Mul 1415 364 1173; Mul 1200 375 1679; Add 1415 1415 1200; Add 1335 1335 1415; Mul 1415 69 1432;
  Sub 1335 1335 1415; Mul 1415 62 1163; Mul 1200 55 1570; Mul 1277 48 1698; Sub 1200 1200 1277;
  Add 1415 1415 1200; Add 1415 1384 1415; Mul 1200 380 1224; Mul 1277 24 1679; Mul 1586 31 1570;
  Add 1277 1277 1586; Add 1200 1200 1277; Add 1200 1415 1200; Mul 1277 378 1200; Mul 1586 384 1277;
  Mul 1438 392 1231; Add 1586 1586 1438; Sub 1586 1335 1586; Mul 1438 388 1586; Add 1652 1583 1438;
  Sub 1595 1267 1652; Mul 1053 401 1231; Mul 1103 397 1558; Mul 1230 48 1657; Mul 1511 55 1693;
  Sub 1230 1230 1511; Sub 1648 1648 1230; Mul 1230 19 1648; Mul 1511 396 1222; Sub 1230 1230 1511;
  Mul 1511 398 1470; Mul 1146 55 1547; Mul 1657 62 1657; Sub 1146 1146 1657; Sub 1448 1448 1146;
  Mul 1146 35 1448; Add 1511 1511 1146; Sub 1230 1230 1511; Mul 1511 369 1230; Add 1103 1103 1511;
  Mul 1511 400 1607; Mul 1146 396 1470; Mul 1648 35 1648; Add 1146 1146 1648; Mul 1448 19 1448;
  Mul 1648 398 1222; Sub 1448 1448 1648; Add 1146 1146 1448; Mul 1448 371 1146; Add 1511 1511 1448;
  Mul 1448 402 1217; Mul 1693 62 1693; Mul 1547 48 1547; Sub 1693 1693 1547; Sub 1513 1513 1693;
  Mul 1693 318 1513; Add 1448 1448 1693; Add 1511 1511 1448; Add 1103 1103 1511; Mul 1511 387 1415;
  Mul 1448 390 1380; Add 1511 1511 1448; Mul 1448 363 1578; Mul 1693 379 1620; Add 1448 1448 1693;
  Sub 1511 1511 1448; Add 1103 1103 1511; Mul 1511 213 1103; Mul 1511 378 1511; Mul 1448 384 1511;
  Add 1693 1053 1448; Mul 1547 397 1224; Mul 1648 358 1230; Add 1547 1547 1648; Mul 1648 400 1679;
  Mul 1657 364 1146; Add 1648 1648 1657; Mul 1657 402 1570; Mul 1332 310 1513; Add 1657 1657 1332;
  Add 1648 1648 1657; Add 1547 1547 1648; Mul 1648 405 1578; Mul 1657 362 1558; Mul 1332 369 1105;
  Add 1657 1657 1332; Mul 1332 365 1607; Mul 1700 371 1510; Add 1332 1332 1700; Mul 1700 367 1217;
  Mul 1367 318 1315; Add 1700 1700 1367; Add 1332 1332 1700; Add 1657 1657 1332; Mul 1332 379 1657;
  Add 1648 1648 1332; Mul 1332 387 1174; Mul 1700 383 1380; Add 1332 1332 1700; Sub 1648 1648 1332;
  Add 1547 1547 1648; Mul 1648 213 1547; Mul 1648 378 1648; Mul 1332 391 1648; Mul 1700 406 1200;
  Add 1367 1332 1700; Mul 1442 397 1584; Mul 1535 372 1230; Add 1442 1442 1535; Mul 1535 400 1432;
  Mul 1181 377 1146; Add 1535 1535 1181; Mul 1181 402 1664; Mul 1496 327 1513; Add 1181 1181 1496;
  Add 1535 1535 1181; Add 1442 1442 1535; Mul 1535 363 1174; Mul 1181 383 1620; Add 1535 1535 1181;
  Mul 1181 405 1415; Mul 1496 390 1657; Add 1181 1181 1496; Sub 1535 1535 1181].
Definition casadi_f0_889 : list instruction := [
  Add 1442 1442 1535; Mul 1535 213 1442; Mul 1535 378 1535; Mul 1181 381 1535; Mul 1496 409 1123;
  Add 1403 1181 1496; Add 1448 1448 1053; Add 1053 1403 1448; Add 1367 1367 1053; Sub 1111 1693 1367;
  Add 1700 1700 1332; Add 1496 1496 1181; Add 1693 1496 1693; Add 1700 1700 1693; Sub 1448 1448 1700;
  Add 1111 1111 1448; Add 1438 1438 1583; Add 1311 1311 1691; Sub 1691 1438 1311; Add 1111 1111 1691;
  Sub 1595 1595 1111; Mul 1111 413 1224; Sub 1691 1105 1344; Mul 1583 358 1691; Add 1111 1111 1583;
  Mul 1583 16 1679; Mul 1448 364 1531; Sub 1583 1583 1448; Mul 1448 15 1570; Mul 1181 310 1314;
  Add 1448 1448 1181; Sub 1583 1583 1448; Mul 1448 419 1583; Mul 1181 16 1510; Mul 1332 365 1531;
  Sub 1181 1181 1332; Mul 1332 367 1314; Mul 1308 15 1315; Add 1332 1332 1308; Sub 1181 1181 1332;
  Mul 1332 418 1181; Add 1448 1448 1332; Mul 1332 15 1679; Mul 1308 364 1314; Add 1332 1332 1308;
  Mul 1308 16 1570; Mul 1627 310 1531; Sub 1308 1308 1627; Add 1332 1332 1308; Mul 1308 422 1332;
  Mul 1627 365 1314; Mul 1030 15 1510; Add 1627 1627 1030; Mul 1030 16 1315; Mul 1263 367 1531;
  Sub 1030 1030 1263; Add 1627 1627 1030; Mul 1030 421 1627; Add 1308 1308 1030; Add 1448 1448 1308;
  Add 1111 1111 1448; Mul 1448 213 1111; Mul 1308 439 1448; Mul 1030 423 1558; Mul 1263 16 1607;
  Mul 1226 371 1531; Sub 1263 1263 1226; Mul 1226 15 1217; Mul 1149 318 1314; Add 1226 1226 1149;
  Sub 1263 1263 1226; Mul 1226 40 1263; Mul 1149 15 1607; Mul 1223 371 1314; Add 1149 1149 1223;
  Mul 1223 16 1217; Mul 1375 318 1531; Sub 1223 1223 1375; Add 1149 1149 1223; Mul 1223 42 1149;
  Add 1226 1226 1223; Add 1030 1030 1226; Mul 1226 372 1030; Mul 1223 424 1584; Add 1226 1226 1223;
  Mul 1223 40 1558; Mul 1375 14 1263; Mul 1060 18 1149; Add 1375 1375 1060; Add 1223 1223 1375;
  Mul 1375 429 1223; Mul 1060 16 1432; Mul 1196 377 1531; Sub 1060 1060 1196; Mul 1196 15 1664;
  Mul 1639 327 1314; Add 1196 1196 1639; Sub 1060 1060 1196; Mul 1196 428 1060; Add 1375 1375 1196;
  Add 1226 1226 1375; Mul 1375 43 1583; Mul 1196 431 1224; Sub 1375 1375 1196; Add 1226 1226 1375;
  Mul 1375 198 1584; Mul 1196 25 1432; Mul 1639 32 1664; Add 1196 1196 1639; Add 1375 1375 1196;
  Add 1375 1578 1375; Mul 1196 433 1584; Mul 1639 26 1060; Mul 1568 15 1432; Mul 1233 377 1314;
  Add 1568 1568 1233; Mul 1233 16 1664; Mul 1036 327 1531; Sub 1233 1233 1036; Add 1568 1568 1233;
  Mul 1233 28 1568; Add 1639 1639 1233; Add 1196 1196 1639; Add 1196 1375 1196; Mul 1639 430 1196;
  Mul 1639 438 1639; Mul 1233 198 1558; Mul 1036 25 1607; Mul 1488 32 1217; Add 1036 1036 1488;
  Add 1233 1233 1036; Add 1233 1174 1233; Mul 1036 433 1558; Mul 1488 26 1263; Mul 1465 28 1149;
  Add 1488 1488 1465; Add 1036 1036 1488; Add 1036 1233 1036; Mul 1488 435 1036; Add 1639 1639 1488;
  Sub 1639 1226 1639; Mul 1488 420 1639; Add 1465 1308 1488; Mul 1142 413 1584; Mul 1091 372 1691;
  Add 1142 1142 1091; Mul 1091 419 1060; Mul 1450 429 1181; Add 1091 1091 1450].
Definition casadi_f0_890 : list instruction := [
  Mul 1450 422 1568; Mul 1407 436 1627; Add 1450 1450 1407; Add 1091 1091 1450; Add 1142 1142 1091;
  Mul 1091 213 1142; Mul 1450 447 1091; Mul 1407 358 1030; Mul 1147 424 1224; Add 1407 1407 1147;
  Mul 1147 418 1223; Mul 1667 428 1583; Add 1147 1147 1667; Add 1407 1407 1147; Mul 1147 43 1060;
  Mul 1667 431 1584; Sub 1147 1147 1667; Sub 1407 1407 1147; Mul 1147 198 1224; Mul 1667 25 1679;
  Mul 1628 32 1570; Add 1667 1667 1628; Add 1147 1147 1667; Add 1147 1415 1147; Mul 1667 433 1224;
  Mul 1628 26 1583; Mul 1489 28 1332; Add 1628 1628 1489; Add 1667 1667 1628; Add 1667 1147 1667;
  Mul 1628 430 1667; Mul 1489 438 1628; Mul 1132 446 1036; Add 1489 1489 1132; Sub 1489 1407 1489;
  Mul 1132 442 1489; Add 1644 1450 1132; Sub 1532 1465 1644; Mul 1194 455 1036; Mul 1563 450 1558;
  Mul 1668 25 1315; Mul 1670 32 1510; Sub 1668 1668 1670; Sub 1230 1230 1668; Mul 1668 369 1230;
  Add 1563 1563 1668; Mul 1668 453 1263; Mul 1670 32 1105; Mul 1315 198 1315; Sub 1670 1670 1315;
  Sub 1146 1146 1670; Mul 1670 16 1146; Mul 1315 452 1531; Sub 1670 1670 1315; Mul 1315 454 1314;
  Mul 1510 198 1510; Mul 1105 25 1105; Sub 1510 1510 1105; Sub 1513 1513 1510; Mul 1510 15 1513;
  Add 1315 1315 1510; Sub 1670 1670 1315; Mul 1315 425 1670; Add 1668 1668 1315; Mul 1315 456 1149;
  Mul 1510 452 1314; Mul 1146 15 1146; Add 1510 1510 1146; Mul 1513 16 1513; Mul 1146 454 1531;
  Sub 1513 1513 1146; Add 1510 1510 1513; Mul 1513 427 1510; Add 1315 1315 1513; Add 1668 1668 1315;
  Add 1563 1563 1668; Mul 1668 441 1147; Mul 1315 444 1142; Add 1668 1668 1315; Mul 1315 417 1375;
  Mul 1513 432 1111; Add 1315 1315 1513; Sub 1668 1668 1315; Add 1563 1563 1668; Mul 1668 213 1563;
  Mul 1668 430 1668; Mul 1315 438 1668; Add 1513 1194 1315; Mul 1146 450 1224; Mul 1105 358 1230;
  Add 1146 1146 1105; Mul 1105 453 1583; Mul 1460 418 1670; Add 1105 1105 1460; Mul 1332 456 1332;
  Mul 1460 421 1510; Add 1332 1332 1460; Add 1105 1105 1332; Add 1146 1146 1105; Mul 1105 459 1375;
  Mul 1332 413 1558; Mul 1691 369 1691; Add 1332 1332 1691; Mul 1691 419 1263; Mul 1181 425 1181;
  Add 1691 1691 1181; Mul 1149 422 1149; Mul 1627 427 1627; Add 1149 1149 1627; Add 1691 1691 1149;
  Add 1332 1332 1691; Mul 1691 432 1332; Add 1105 1105 1691; Mul 1691 441 1233; Mul 1149 437 1142;
  Add 1691 1691 1149; Sub 1105 1105 1691; Add 1146 1146 1105; Mul 1105 213 1146; Mul 1105 430 1105;
  Mul 1691 445 1105; Mul 1149 460 1667; Add 1627 1691 1149; Mul 1181 450 1584; Mul 1230 372 1230;
  Add 1181 1181 1230; Mul 1230 453 1060; Mul 1670 429 1670; Add 1230 1230 1670; Mul 1670 456 1568;
  Mul 1510 436 1510; Add 1670 1670 1510; Add 1230 1230 1670; Add 1181 1181 1230; Mul 1230 417 1233;
  Mul 1670 437 1111; Add 1230 1230 1670; Mul 1670 459 1147; Mul 1510 444 1332; Add 1670 1670 1510;
  Sub 1230 1230 1670; Add 1181 1181 1230; Mul 1230 213 1181; Mul 1230 430 1230; Mul 1670 434 1230;
  Mul 1510 463 1196; Add 1460 1670 1510; Add 1315 1315 1194; Add 1194 1460 1315].
Definition casadi_f0_891 : list instruction := [
  Add 1627 1627 1194; Sub 1360 1513 1627; Add 1149 1149 1691; Add 1510 1510 1670; Add 1513 1510 1513;
  Add 1149 1149 1513; Sub 1315 1315 1149; Add 1360 1360 1315; Add 1132 1132 1450; Add 1488 1488 1308;
  Sub 1308 1132 1488; Add 1360 1360 1308; Sub 1532 1532 1360; Add 1595 1595 1532; Add 1051 1051 1595;
  Add 1208 1208 1051; Add 1420 1420 1208; Mul 1420 0 1420; Mul 1208 235 1544; Add 1420 1420 1208;
  Mul 1144 261 1144; Mul 1208 262 1618; Add 1144 1144 1208; Mul 1424 315 1424; Mul 1208 316 1287;
  Add 1424 1424 1208; Mul 1253 369 1253; Mul 1208 370 1558; Add 1253 1253 1208; Mul 1173 371 1173;
  Mul 1208 375 1607; Add 1173 1173 1208; Add 1253 1253 1173; Mul 1030 369 1030; Mul 1173 424 1558;
  Add 1030 1030 1173; Mul 1223 425 1223; Mul 1173 428 1263; Add 1223 1223 1173; Add 1030 1030 1223;
  Add 1223 1253 1030; Sub 1173 1200 1667; Mul 1208 480 1173; Sub 1051 1123 1196; Mul 1360 1197 1051;
  Add 1308 1208 1360; Mul 1308 20 1308; Add 1223 1223 1308; Add 1308 1424 1223; Mul 1450 485 1200;
  Mul 1315 50 1667; Add 1450 1450 1315; Sub 1315 1582 1450; Mul 1670 487 1315; Mul 1691 485 1123;
  Mul 1229 50 1196; Add 1691 1691 1229; Sub 1229 1638 1691; Mul 1666 1286 1229; Add 1077 1670 1666;
  Mul 1077 37 1077; Add 1308 1308 1077; Add 1077 1144 1308; Mul 1188 493 1582; Mul 1191 83 1450;
  Add 1188 1188 1191; Sub 1191 1268 1188; Mul 1604 495 1191; Mul 1634 493 1638; Mul 1125 83 1691;
  Add 1634 1634 1125; Sub 1125 1108 1634; Mul 1204 1294 1125; Add 1169 1604 1204; Mul 1169 80 1169;
  Add 1077 1077 1169; Mul 1169 237 1466; Mul 1593 113 1593; Sub 1169 1169 1593; Sub 1593 1077 1169;
  Mul 1608 501 1108; Mul 1495 104 1634; Add 1608 1608 1495; Sub 1495 1486 1608; Mul 1241 1299 1495;
  Mul 1411 501 1268; Mul 1340 104 1188; Add 1411 1411 1340; Add 1340 1302 1411; Mul 1430 503 1340;
  Sub 1520 1241 1430; Mul 1520 100 1520; Add 1593 1593 1520; Mul 1593 508 1593; Mul 1520 216 1351;
  Mul 1542 219 1385; Sub 1520 1520 1542; Mul 1542 215 1338; Mul 1439 227 1698; Add 1542 1542 1439;
  Add 1520 1520 1542; Mul 1542 500 1520; Add 1593 1593 1542; Add 1542 1335 1407; Mul 1173 20 1173;
  Mul 1439 512 1173; Sub 1515 1231 1036; Mul 1528 511 1515; Add 1439 1439 1528; Sub 1542 1542 1439;
  Add 1439 1154 1542; Mul 1315 37 1315; Mul 1528 516 1315; Mul 1704 485 1231; Mul 1370 50 1036;
  Add 1704 1704 1370; Sub 1370 1296 1704; Mul 1503 514 1370; Add 1528 1528 1503; Sub 1439 1439 1528;
  Add 1528 1083 1439; Mul 1191 80 1191; Mul 1503 520 1191; Mul 1124 493 1296; Mul 1310 83 1704;
  Add 1124 1124 1310; Sub 1310 1177 1124; Mul 1680 518 1310; Add 1503 1503 1680; Sub 1528 1528 1503;
  Add 1503 1164 1528; Mul 1340 100 1340; Mul 1680 524 1340; Mul 1048 501 1177; Mul 1122 104 1124;
  Add 1048 1048 1122; Add 1122 1167 1048; Mul 1242 522 1122; Add 1680 1680 1242; Add 1503 1503 1680;
  Mul 1680 526 1503; Mul 1242 221 1466; Mul 1597 113 1597; Add 1242 1242 1597; Mul 1681 114 1681;
  Mul 1597 218 1127; Sub 1681 1681 1597; Add 1242 1242 1681; Mul 1681 216 1242].
Definition casadi_f0_892 : list instruction := [
  Mul 1597 525 1385; Sub 1681 1681 1597; Mul 1597 521 1681; Add 1680 1680 1597; Add 1597 1500 1226;
  Mul 1388 20 1051; Mul 1388 512 1388; Mul 1461 529 1515; Add 1388 1388 1461; Sub 1597 1597 1388;
  Add 1388 1546 1597; Mul 1461 37 1229; Mul 1461 516 1461; Mul 1236 531 1370; Add 1461 1461 1236;
  Sub 1388 1388 1461; Add 1461 1082 1388; Mul 1236 80 1125; Mul 1236 520 1236; Mul 1099 533 1310;
  Add 1236 1236 1099; Sub 1461 1461 1236; Add 1236 1611 1461; Mul 1099 100 1495; Mul 1099 524 1099;
  Mul 1649 535 1122; Sub 1099 1099 1649; Sub 1236 1236 1099; Mul 1099 536 1236; Mul 1649 215 1242;
  Mul 1232 525 1698; Add 1649 1649 1232; Mul 1232 534 1649; Add 1099 1099 1232; Add 1680 1680 1099;
  Sub 1593 1593 1680; Mul 1680 120 1411; Mul 1099 527 1302; Sub 1680 1680 1099; Mul 1099 539 1680;
  Mul 1232 120 1048; Mul 1244 527 1167; Sub 1232 1232 1244; Mul 1244 526 1232; Mul 1179 538 1681;
  Add 1244 1244 1179; Mul 1179 508 1680; Mul 1151 537 1520; Add 1179 1179 1151; Add 1244 1244 1179;
  Mul 1179 540 1242; Mul 1151 214 1385; Mul 1218 525 1151; Sub 1179 1179 1218; Sub 1244 1244 1179;
  Mul 1244 141 1244; Mul 1218 537 1244; Add 1099 1099 1218; Mul 1218 527 1486; Mul 1318 120 1608;
  Add 1218 1218 1318; Mul 1318 546 1218; Mul 1656 544 1242; Mul 1136 214 1698; Mul 1372 525 1136;
  Add 1656 1656 1372; Mul 1372 508 1218; Mul 1702 543 1520; Add 1372 1372 1702; Mul 1702 536 1232;
  Mul 1152 538 1649; Add 1702 1702 1152; Add 1372 1372 1702; Sub 1372 1656 1372; Mul 1372 141 1372;
  Mul 1702 543 1372; Add 1318 1318 1702; Sub 1099 1099 1318; Add 1593 1593 1099; Mul 1099 553 1399;
  Mul 1318 238 1371; Mul 1421 236 1421; Mul 1702 144 1385; Sub 1421 1421 1702; Add 1318 1318 1421;
  Mul 1421 224 1318; Mul 1702 542 1371; Add 1421 1421 1702; Mul 1371 144 1371; Mul 1702 549 1385;
  Sub 1371 1371 1702; Mul 1702 216 1371; Mul 1152 548 1385; Sub 1702 1702 1152; Add 1421 1421 1702;
  Mul 1702 1334 1302; Mul 1152 1336 1167; Add 1661 1702 1152; Mul 1661 212 1661; Sub 1661 1421 1661;
  Mul 1612 249 1661; Add 1669 1099 1612; Mul 1382 556 1697; Mul 1318 220 1318; Mul 1187 542 1187;
  Sub 1318 1318 1187; Mul 1371 215 1371; Mul 1187 548 1698; Add 1371 1371 1187; Sub 1318 1318 1371;
  Mul 1371 241 1486; Mul 1049 225 1049; Sub 1371 1371 1049; Sub 1371 1318 1371; Mul 1049 244 1371;
  Add 1187 1382 1049; Sub 1669 1669 1187; Mul 1187 242 1323; Mul 1474 223 1167; Sub 1187 1187 1474;
  Mul 1474 1342 1486; Sub 1702 1474 1702; Mul 1702 212 1702; Sub 1702 1702 1169; Mul 1239 249 1702;
  Mul 1458 551 1399; Add 1409 1239 1458; Mul 1362 560 1674; Mul 1327 213 1242; Mul 1574 243 1327;
  Add 1529 1362 1574; Sub 1409 1409 1529; Add 1409 1187 1409; Sub 1669 1669 1409; Sub 1409 1169 1421;
  Mul 1529 219 1409; Mul 1557 557 1351; Add 1529 1529 1557; Mul 1557 227 1318; Mul 1602 555 1338;
  Add 1557 1557 1602; Add 1529 1529 1557; Mul 1557 525 1164; Mul 1602 239 1242; Add 1557 1557 1602;
  Add 1529 1529 1557; Mul 1557 340 1486; Mul 1602 231 1338; Mul 1112 227 1302].
Definition casadi_f0_893 : list instruction := [
  Sub 1602 1602 1112; Mul 1112 219 1486; Mul 1606 225 1351; Add 1112 1112 1606; Sub 1602 1602 1112;
  Mul 1602 212 1602; Mul 1112 225 1602; Add 1557 1557 1112; Mul 1112 242 1351; Mul 1606 219 1167;
  Sub 1112 1112 1606; Mul 1606 231 1242; Mul 1533 525 1302; Sub 1606 1606 1533; Sub 1112 1112 1606;
  Sub 1112 1601 1112; Mul 1112 212 1112; Mul 1606 242 1112; Mul 1533 559 1167; Sub 1606 1606 1533;
  Add 1557 1557 1606; Sub 1529 1529 1557; Mul 1529 213 1529; Sub 1669 1669 1529; Mul 1557 567 1145;
  Mul 1606 260 1636; Mul 1533 263 1117; Mul 1071 127 1385; Sub 1533 1533 1071; Add 1606 1606 1533;
  Mul 1533 265 1606; Mul 1071 547 1636; Add 1533 1533 1071; Mul 1636 127 1636; Mul 1117 268 1117;
  Mul 1071 563 1385; Sub 1117 1117 1071; Add 1636 1636 1117; Mul 1117 216 1636; Mul 1071 562 1385;
  Sub 1117 1117 1071; Add 1533 1533 1117; Mul 1117 1138 1268; Mul 1071 1357 1177; Add 1685 1117 1071;
  Mul 1685 269 1685; Add 1685 1533 1685; Mul 1141 258 1685; Add 1075 1557 1141; Mul 1603 570 1560;
  Mul 1606 253 1606; Mul 1650 547 1650; Add 1606 1606 1650; Mul 1636 215 1636; Mul 1650 562 1698;
  Add 1636 1636 1650; Sub 1606 1606 1636; Mul 1618 135 1618; Sub 1606 1606 1618; Mul 1137 271 1137;
  Mul 1618 283 1108; Add 1137 1137 1618; Sub 1137 1606 1137; Mul 1618 279 1137; Add 1636 1603 1618;
  Sub 1075 1075 1636; Mul 1636 300 1177; Mul 1650 275 1238; Add 1341 1636 1650; Mul 1434 271 1645;
  Mul 1508 292 1108; Add 1462 1434 1508; Add 1341 1341 1462; Mul 1462 1366 1108; Add 1117 1117 1462;
  Mul 1117 269 1117; Add 1117 1144 1117; Mul 1653 258 1117; Mul 1285 565 1145; Add 1453 1653 1285;
  Mul 1245 574 1098; Mul 1624 213 1475; Mul 1416 284 1624; Add 1317 1245 1416; Sub 1453 1453 1317;
  Add 1341 1341 1453; Sub 1075 1075 1341; Mul 1341 571 1215; Add 1453 1533 1144; Mul 1317 255 1453;
  Sub 1341 1341 1317; Mul 1317 278 1606; Mul 1180 569 1097; Add 1317 1317 1180; Add 1341 1341 1317;
  Mul 1317 296 1083; Mul 1180 280 1475; Add 1317 1317 1180; Add 1341 1341 1317; Mul 1317 471 1108;
  Mul 1180 278 1268; Mul 1590 282 1097; Add 1180 1180 1590; Mul 1590 255 1108; Mul 1166 271 1215;
  Add 1590 1590 1166; Sub 1180 1180 1590; Sub 1180 1102 1180; Mul 1180 269 1180; Mul 1590 271 1180;
  Add 1317 1317 1590; Mul 1590 573 1177; Mul 1166 255 1177; Mul 1348 275 1215; Add 1166 1166 1348;
  Mul 1348 296 1268; Mul 1389 282 1475; Add 1348 1348 1389; Sub 1166 1166 1348; Sub 1166 1252 1166;
  Mul 1166 269 1166; Mul 1348 275 1166; Add 1590 1590 1348; Sub 1317 1317 1590; Add 1341 1341 1317;
  Mul 1341 213 1341; Sub 1075 1075 1341; Mul 1317 581 1272; Mul 1590 314 1121; Mul 1348 317 1664;
  Mul 1389 128 1385; Sub 1348 1348 1389; Add 1590 1590 1348; Mul 1348 319 1590; Mul 1389 561 1121;
  Add 1348 1348 1389; Mul 1121 128 1121; Mul 1389 322 1664; Mul 1690 577 1385; Sub 1389 1389 1690;
  Add 1121 1121 1389; Mul 1389 216 1121; Mul 1690 576 1385; Sub 1389 1389 1690; Add 1348 1348 1389;
  Mul 1389 1379 1582; Mul 1690 1381 1296; Add 1587 1389 1690; Mul 1587 323 1587].
Definition casadi_f0_894 : list instruction := [
  Add 1587 1348 1587; Mul 1441 312 1587; Add 1270 1317 1441; Mul 1274 584 1554; Mul 1590 304 1590;
  Mul 1163 561 1163; Add 1590 1590 1163; Mul 1121 215 1121; Mul 1163 576 1698; Add 1121 1121 1163;
  Sub 1590 1590 1121; Mul 1287 131 1287; Sub 1590 1590 1287; Mul 1658 325 1658; Mul 1287 337 1638;
  Add 1658 1658 1287; Sub 1658 1590 1658; Mul 1287 333 1658; Add 1121 1274 1287; Sub 1270 1270 1121;
  Mul 1121 354 1296; Mul 1163 329 1505; Add 1572 1121 1163; Mul 1526 325 1493; Mul 1300 346 1638;
  Add 1118 1526 1300; Add 1572 1572 1118; Mul 1118 1390 1638; Add 1389 1389 1118; Mul 1389 323 1389;
  Add 1389 1424 1389; Mul 1625 312 1389; Mul 1479 579 1272; Add 1235 1625 1479; Mul 1359 588 1281;
  Mul 1240 213 1539; Mul 1190 338 1240; Add 1483 1359 1190; Sub 1235 1235 1483; Add 1572 1572 1235;
  Sub 1270 1270 1572; Mul 1572 585 1564; Add 1235 1348 1424; Mul 1483 309 1235; Sub 1572 1572 1483;
  Mul 1483 332 1590; Mul 1295 583 1521; Add 1483 1483 1295; Add 1572 1572 1483; Mul 1483 349 1154;
  Mul 1295 334 1539; Add 1483 1483 1295; Add 1572 1572 1483; Mul 1483 473 1638; Mul 1295 332 1582;
  Mul 1261 336 1521; Add 1295 1295 1261; Mul 1261 309 1638; Mul 1468 325 1564; Add 1261 1261 1468;
  Sub 1295 1295 1261; Sub 1295 1402 1295; Mul 1295 323 1295; Mul 1261 325 1295; Add 1483 1483 1261;
  Mul 1261 587 1296; Mul 1468 309 1296; Mul 1175 329 1564; Add 1468 1468 1175; Mul 1175 349 1582;
  Mul 1032 336 1539; Add 1175 1175 1032; Sub 1468 1468 1175; Sub 1468 1538 1468; Mul 1468 323 1468;
  Mul 1175 329 1468; Add 1261 1261 1175; Sub 1483 1483 1261; Add 1572 1572 1483; Mul 1572 213 1572;
  Sub 1270 1270 1572; Mul 1483 594 1545; Mul 1261 368 1584; Mul 1175 39 1432; Mul 1032 373 1664;
  Add 1175 1175 1032; Add 1261 1261 1175; Mul 1175 372 1261; Mul 1032 575 1584; Add 1175 1175 1032;
  Mul 1032 39 1584; Mul 1192 376 1432; Add 1032 1032 1192; Mul 1192 377 1032; Mul 1432 590 1432;
  Add 1192 1192 1432; Add 1175 1175 1192; Mul 1192 1404 1200; Mul 1432 1405 1231; Add 1562 1192 1432;
  Mul 1562 378 1562; Add 1562 1175 1562; Mul 1312 366 1562; Add 1467 1483 1312; Mul 1433 597 1206;
  Mul 1261 358 1261; Mul 1427 575 1224; Add 1261 1261 1427; Mul 1032 364 1032; Mul 1679 590 1679;
  Add 1032 1032 1679; Add 1261 1261 1032; Mul 1607 69 1607; Add 1261 1261 1607; Mul 1277 381 1277;
  Mul 1607 392 1123; Add 1277 1277 1607; Sub 1277 1261 1277; Mul 1607 388 1277; Add 1032 1433 1607;
  Sub 1467 1467 1032; Mul 1032 409 1231; Mul 1679 384 1535; Add 1427 1032 1679; Mul 1094 381 1511;
  Mul 1363 401 1123; Add 1016 1094 1363; Add 1427 1427 1016; Mul 1016 1414 1123; Add 1192 1192 1016;
  Mul 1192 378 1192; Add 1192 1253 1192; Mul 1703 366 1192; Mul 1451 592 1545; Add 1038 1703 1451;
  Mul 1457 601 1586; Mul 1186 213 1657; Mul 1497 393 1186; Add 1297 1457 1497; Sub 1038 1038 1297;
  Add 1427 1427 1038; Sub 1467 1467 1427; Mul 1427 598 1620; Add 1038 1175 1253; Mul 1297 363 1038;
  Sub 1427 1427 1297; Mul 1297 387 1261; Mul 1211 596 1380; Add 1297 1297 1211].
Definition casadi_f0_895 : list instruction := [
  Add 1427 1427 1297; Mul 1297 405 1335; Mul 1211 389 1657; Add 1297 1297 1211; Add 1427 1427 1297;
  Mul 1297 475 1123; Mul 1211 387 1200; Mul 1139 391 1380; Add 1211 1211 1139; Mul 1139 363 1123;
  Mul 1580 381 1620; Add 1139 1139 1580; Sub 1211 1211 1139; Sub 1211 1103 1211; Mul 1211 378 1211;
  Mul 1139 381 1211; Add 1297 1297 1139; Mul 1139 600 1231; Mul 1580 363 1231; Mul 1425 384 1620;
  Add 1580 1580 1425; Mul 1425 405 1200; Mul 1020 391 1657; Add 1425 1425 1020; Sub 1580 1580 1425;
  Sub 1580 1442 1580; Mul 1580 378 1580; Mul 1425 384 1580; Add 1139 1139 1425; Sub 1297 1297 1139;
  Add 1427 1427 1297; Mul 1427 213 1427; Sub 1467 1467 1427; Mul 1297 607 1448; Mul 1139 423 1584;
  Mul 1425 40 1060; Mul 1020 42 1568; Add 1425 1425 1020; Add 1139 1139 1425; Mul 1425 372 1139;
  Mul 1020 589 1584; Add 1425 1425 1020; Mul 1020 40 1584; Mul 1131 14 1060; Mul 1568 18 1568;
  Add 1131 1131 1568; Add 1020 1020 1131; Mul 1131 429 1020; Mul 1060 603 1060; Add 1131 1131 1060;
  Add 1425 1425 1131; Mul 1131 1428 1667; Mul 1060 1264 1036; Add 1568 1131 1060; Mul 1568 430 1568;
  Add 1568 1425 1568; Mul 1119 420 1568; Add 1706 1297 1119; Mul 1383 610 1091; Mul 1139 358 1139;
  Mul 1671 589 1224; Add 1139 1139 1671; Mul 1020 418 1020; Mul 1583 603 1583; Add 1020 1020 1583;
  Add 1139 1139 1020; Mul 1263 43 1263; Mul 1020 431 1558; Sub 1263 1263 1020; Add 1139 1139 1263;
  Mul 1628 434 1628; Mul 1263 446 1196; Add 1628 1628 1263; Sub 1628 1139 1628; Mul 1263 442 1628;
  Add 1020 1383 1263; Sub 1706 1706 1020; Mul 1020 463 1036; Mul 1583 438 1230; Add 1671 1020 1583;
  Mul 1018 434 1668; Mul 1487 455 1196; Add 1689 1018 1487; Add 1671 1671 1689; Mul 1689 1437 1196;
  Add 1131 1131 1689; Mul 1131 430 1131; Add 1131 1030 1131; Mul 1343 420 1131; Mul 1556 605 1448;
  Add 1074 1343 1556; Mul 1109 614 1489; Mul 1021 213 1332; Mul 1185 447 1021; Add 1087 1109 1185;
  Sub 1074 1074 1087; Add 1671 1671 1074; Sub 1706 1706 1671; Mul 1671 13 1111; Add 1074 1425 1030;
  Mul 1087 417 1074; Sub 1671 1671 1087; Mul 1087 441 1139; Mul 1549 609 1142; Add 1087 1087 1549;
  Add 1671 1671 1087; Mul 1087 459 1407; Mul 1549 443 1332; Add 1087 1087 1549; Add 1671 1671 1087;
  Mul 1087 477 1196; Mul 1549 441 1667; Mul 1278 445 1142; Add 1549 1549 1278; Mul 1278 417 1196;
  Mul 1413 434 1111; Add 1278 1278 1413; Sub 1549 1549 1278; Sub 1549 1563 1549; Mul 1549 430 1549;
  Mul 1278 434 1549; Add 1087 1087 1278; Mul 1278 611 1036; Mul 1413 417 1036; Mul 1672 438 1111;
  Add 1413 1413 1672; Mul 1672 459 1667; Mul 1537 445 1332; Add 1672 1672 1537; Sub 1413 1413 1672;
  Sub 1413 1181 1413; Mul 1413 430 1413; Mul 1672 438 1413; Add 1278 1278 1672; Sub 1087 1087 1278;
  Add 1671 1671 1087; Mul 1671 213 1671; Sub 1706 1706 1671; Add 1467 1467 1706; Add 1270 1270 1467;
  Add 1075 1075 1270; Add 1669 1669 1075; Mul 1669 216 1669; Mul 1087 554 1385; Sub 1669 1669 1087;
  Mul 1087 242 1349; Mul 1278 230 1167; Sub 1087 1087 1278; Mul 1278 560 1291].
Definition casadi_f0_896 : list instruction := [
  Mul 1672 248 1327; Add 1537 1278 1672; Mul 1702 244 1702; Mul 1506 551 1697; Add 1203 1702 1506;
  Sub 1537 1537 1203; Sub 1537 1087 1537; Mul 1203 556 1399; Mul 1209 249 1371; Add 1193 1203 1209;
  Mul 1548 558 1697; Sub 1474 1474 1152; Mul 1474 212 1474; Add 1474 1409 1474; Mul 1152 244 1474;
  Add 1683 1548 1152; Sub 1193 1193 1683; Add 1537 1537 1193; Mul 1193 219 1318; Mul 1683 555 1351;
  Add 1193 1193 1683; Mul 1683 227 1421; Mul 1663 550 1338; Add 1683 1683 1663; Add 1193 1193 1683;
  Mul 1683 525 1611; Mul 1663 246 1242; Add 1683 1683 1663; Add 1193 1193 1683; Mul 1683 231 1602;
  Mul 1663 340 1302; Sub 1683 1683 1663; Mul 1663 525 1486; Mul 1573 225 1242; Add 1663 1663 1573;
  Mul 1573 242 1338; Mul 1162 227 1167; Sub 1573 1573 1162; Sub 1663 1663 1573; Add 1663 1081 1663;
  Mul 1663 212 1663; Mul 1573 242 1663; Mul 1162 616 1167; Sub 1573 1573 1162; Sub 1683 1683 1573;
  Add 1193 1193 1683; Mul 1193 213 1193; Add 1537 1537 1193; Mul 1683 570 1145; Mul 1573 258 1137;
  Add 1162 1683 1573; Mul 1431 572 1560; Add 1462 1462 1071; Mul 1462 269 1462; Sub 1462 1462 1453;
  Mul 1071 279 1462; Add 1292 1431 1071; Sub 1162 1162 1292; Mul 1292 297 1177; Mul 1641 275 1665;
  Add 1368 1292 1641; Mul 1086 282 1645; Mul 1594 292 1268; Add 1092 1086 1594; Add 1368 1368 1092;
  Mul 1092 574 1024; Mul 1135 276 1624; Add 1316 1092 1135; Mul 1117 279 1117; Mul 1678 565 1560;
  Add 1047 1117 1678; Sub 1316 1316 1047; Add 1368 1368 1316; Sub 1162 1162 1368; Mul 1368 255 1606;
  Mul 1316 569 1215; Add 1368 1368 1316; Mul 1316 278 1533; Mul 1047 564 1097; Add 1316 1316 1047;
  Add 1368 1368 1316; Mul 1316 296 1082; Mul 1047 266 1475; Add 1316 1316 1047; Add 1368 1368 1316;
  Mul 1316 617 1177; Mul 1047 296 1108; Mul 1246 271 1475; Add 1047 1047 1246; Mul 1246 278 1177;
  Mul 1688 275 1097; Add 1246 1246 1688; Sub 1047 1047 1246; Sub 1047 1113 1047; Mul 1047 269 1047;
  Mul 1246 275 1047; Add 1316 1316 1246; Mul 1246 471 1268; Mul 1688 282 1180; Add 1246 1246 1688;
  Sub 1316 1316 1246; Add 1368 1368 1316; Mul 1368 213 1368; Add 1162 1162 1368; Mul 1316 584 1272;
  Mul 1246 312 1658; Add 1688 1316 1246; Mul 1129 586 1554; Add 1118 1118 1690; Mul 1118 323 1118;
  Sub 1118 1118 1235; Mul 1690 333 1118; Add 1216 1129 1690; Sub 1688 1688 1216; Mul 1216 351 1296;
  Mul 1088 329 1482; Add 1522 1216 1088; Mul 1391 336 1493; Mul 1567 346 1582; Add 1199 1391 1567;
  Add 1522 1522 1199; Mul 1199 588 1676; Mul 1640 330 1240; Add 1394 1199 1640; Mul 1389 333 1389;
  Mul 1355 579 1554; Add 1579 1389 1355; Sub 1394 1394 1579; Add 1522 1522 1394; Sub 1688 1688 1522;
  Mul 1522 309 1590; Mul 1394 583 1564; Add 1522 1522 1394; Mul 1394 332 1348; Mul 1579 578 1521;
  Add 1394 1394 1579; Add 1522 1522 1394; Mul 1394 349 1546; Mul 1579 320 1539; Add 1394 1394 1579;
  Add 1522 1522 1394; Mul 1394 619 1296; Mul 1579 349 1638; Mul 1621 325 1539; Add 1579 1579 1621;
  Mul 1621 332 1296; Mul 1320 329 1521; Add 1621 1621 1320; Sub 1579 1579 1621].
Definition casadi_f0_897 : list instruction := [
  Sub 1579 1130 1579; Mul 1579 323 1579; Mul 1621 329 1579; Add 1394 1394 1621; Mul 1621 473 1582;
  Mul 1320 336 1295; Add 1621 1621 1320; Sub 1394 1394 1621; Add 1522 1522 1394; Mul 1522 213 1522;
  Add 1688 1688 1522; Mul 1394 597 1545; Mul 1621 366 1277; Add 1320 1394 1621; Mul 1339 599 1206;
  Add 1016 1016 1432; Mul 1016 378 1016; Sub 1016 1016 1038; Mul 1432 388 1016; Add 1512 1339 1432;
  Sub 1320 1320 1512; Mul 1512 406 1231; Mul 1398 384 1648; Add 1392 1512 1398; Mul 1228 391 1511;
  Mul 1550 401 1200; Add 1682 1228 1550; Add 1392 1392 1682; Mul 1682 601 1254; Mul 1477 385 1186;
  Add 1551 1682 1477; Mul 1192 388 1192; Mul 1251 592 1206; Add 1198 1192 1251; Sub 1551 1551 1198;
  Add 1392 1392 1551; Sub 1320 1320 1392; Mul 1392 363 1261; Mul 1551 596 1620; Add 1392 1392 1551;
  Mul 1551 387 1175; Mul 1198 591 1380; Add 1551 1551 1198; Add 1392 1392 1551; Mul 1551 405 1500;
  Mul 1198 374 1657; Add 1551 1551 1198; Add 1392 1392 1551; Mul 1551 621 1231; Mul 1198 405 1123;
  Mul 1610 381 1657; Add 1198 1198 1610; Mul 1610 387 1231; Mul 1662 384 1380; Add 1610 1610 1662;
  Sub 1198 1198 1610; Sub 1198 1547 1198; Mul 1198 378 1198; Mul 1610 384 1198; Add 1551 1551 1610;
  Mul 1610 475 1200; Mul 1662 391 1211; Add 1610 1610 1662; Sub 1551 1551 1610; Add 1392 1392 1551;
  Mul 1392 213 1392; Add 1320 1320 1392; Mul 1551 610 1448; Mul 1610 420 1628; Add 1662 1551 1610;
  Mul 1148 612 1091; Add 1689 1689 1060; Mul 1689 430 1689; Sub 1689 1689 1074; Mul 1060 442 1689;
  Add 1507 1148 1060; Sub 1662 1662 1507; Mul 1507 460 1036; Mul 1369 438 1105; Add 1632 1507 1369;
  Mul 1134 445 1668; Mul 1313 455 1667; Add 1581 1134 1313; Add 1632 1632 1581; Mul 1581 614 1639;
  Mul 1116 439 1021; Add 1417 1581 1116; Mul 1131 442 1131; Mul 1696 605 1091; Add 1034 1131 1696;
  Sub 1417 1417 1034; Add 1632 1632 1417; Sub 1662 1662 1632; Mul 1632 417 1139; Mul 1417 609 1111;
  Add 1632 1632 1417; Mul 1417 441 1425; Mul 1034 604 1142; Add 1417 1417 1034; Add 1632 1632 1417;
  Mul 1417 459 1226; Mul 1034 426 1332; Add 1417 1417 1034; Add 1632 1632 1417; Mul 1417 623 1036;
  Mul 1034 459 1196; Mul 1104 434 1332; Add 1034 1034 1104; Mul 1104 441 1036; Mul 1643 438 1142;
  Add 1104 1104 1643; Sub 1034 1034 1104; Sub 1034 1146 1034; Mul 1034 430 1034; Mul 1104 438 1034;
  Add 1417 1417 1104; Mul 1104 477 1667; Mul 1643 445 1549; Add 1104 1104 1643; Sub 1417 1417 1104;
  Add 1632 1632 1417; Mul 1632 213 1632; Add 1662 1662 1632; Add 1320 1320 1662; Add 1688 1688 1320;
  Add 1162 1162 1688; Add 1537 1537 1162; Mul 1537 215 1537; Mul 1417 613 1698; Add 1537 1537 1417;
  Sub 1669 1669 1537; Mul 1537 212 1399; Mul 1417 242 1537; Mul 1104 624 1167; Sub 1417 1417 1104;
  Mul 1104 212 1327; Mul 1643 231 1104; Mul 1156 626 1302; Sub 1643 1643 1156; Add 1643 1323 1643;
  Sub 1417 1417 1643; Mul 1643 213 1112; Add 1156 1417 1643; Mul 1400 269 1145; Mul 1084 275 1400;
  Mul 1333 629 1177; Add 1660 1084 1333; Mul 1093 631 1268; Mul 1247 269 1624].
Definition casadi_f0_898 : list instruction := [
  Mul 1022 282 1247; Add 1440 1093 1022; Add 1440 1238 1440; Sub 1660 1660 1440; Mul 1440 213 1166;
  Add 1684 1660 1440; Mul 1426 323 1272; Mul 1189 329 1426; Mul 1576 634 1296; Add 1289 1189 1576;
  Mul 1631 636 1582; Mul 1325 323 1240; Mul 1271 336 1325; Add 1647 1631 1271; Add 1647 1505 1647;
  Sub 1289 1289 1647; Mul 1647 213 1468; Add 1443 1289 1647; Mul 1126 378 1545; Mul 1523 384 1126;
  Mul 1429 639 1231; Add 1527 1523 1429; Mul 1471 641 1200; Mul 1659 378 1186; Mul 1158 391 1659;
  Add 1699 1471 1158; Add 1699 1535 1699; Sub 1527 1527 1699; Mul 1699 213 1580; Add 1159 1527 1699;
  Mul 1042 430 1448; Mul 1463 438 1042; Mul 1677 644 1036; Add 1346 1463 1677; Mul 1622 646 1667;
  Mul 1019 430 1021; Mul 1157 445 1019; Add 1524 1622 1157; Add 1524 1230 1524; Sub 1346 1346 1524;
  Mul 1524 213 1413; Add 1419 1346 1524; Add 1159 1159 1419; Add 1443 1443 1159; Add 1684 1684 1443;
  Add 1156 1156 1684; Mul 1156 540 1156; Mul 1227 628 1151; Sub 1156 1156 1227; Mul 1227 212 1697;
  Mul 1484 242 1227; Mul 1305 650 1167; Sub 1484 1484 1305; Mul 1305 626 1486; Mul 1255 225 1104;
  Add 1305 1305 1255; Add 1305 1349 1305; Sub 1484 1484 1305; Mul 1305 213 1663; Add 1255 1484 1305;
  Mul 1283 631 1108; Mul 1358 271 1247; Add 1473 1283 1358; Sub 1473 1665 1473; Mul 1655 269 1560;
  Mul 1692 275 1655; Mul 1319 655 1177; Add 1210 1692 1319; Add 1473 1473 1210; Mul 1210 213 1047;
  Sub 1096 1473 1210; Mul 1279 636 1638; Mul 1365 325 1325; Add 1256 1279 1365; Sub 1256 1482 1256;
  Mul 1284 323 1554; Mul 1234 329 1284; Mul 1598 659 1296; Add 1459 1234 1598; Add 1256 1256 1459;
  Mul 1459 213 1579; Sub 1675 1256 1459; Mul 1552 641 1123; Mul 1455 381 1659; Add 1347 1552 1455;
  Sub 1347 1648 1347; Mul 1326 378 1206; Mul 1509 384 1326; Mul 1410 663 1231; Add 1617 1509 1410;
  Add 1347 1347 1617; Mul 1617 213 1198; Sub 1110 1347 1617; Mul 1565 646 1196; Mul 1172 434 1019;
  Add 1499 1565 1172; Sub 1499 1105 1499; Mul 1589 430 1091; Mul 1444 438 1589; Mul 1541 667 1036;
  Add 1502 1444 1541; Add 1499 1499 1502; Mul 1502 213 1034; Sub 1376 1499 1502; Add 1110 1110 1376;
  Add 1675 1675 1110; Add 1096 1096 1675; Add 1255 1255 1096; Mul 1255 544 1255; Mul 1536 653 1136;
  Add 1255 1255 1536; Add 1156 1156 1255; Sub 1669 1669 1156; Add 1593 1593 1669; Mul 1593 1 1593;
  Mul 1669 509 1028; Add 1593 1593 1669; Add 1420 1420 1593; Mul 1593 602 1528; Mul 1669 216 1475;
  Mul 1156 296 1385; Sub 1669 1669 1156; Mul 1156 517 1669; Add 1593 1593 1156; Mul 1156 670 1461;
  Mul 1255 215 1475; Mul 1536 296 1698; Add 1255 1255 1536; Mul 1536 532 1255; Add 1156 1156 1536;
  Add 1593 1593 1156; Mul 1077 671 1077; Mul 1156 216 1215; Mul 1536 255 1385; Sub 1156 1156 1536;
  Mul 1536 215 1097; Mul 1605 278 1698; Add 1536 1536 1605; Add 1156 1156 1536; Mul 1536 492 1156;
  Add 1077 1077 1536; Sub 1593 1593 1077; Mul 1077 675 1411; Mul 1536 215 1102; Mul 1605 290 1698;
  Add 1536 1536 1605; Mul 1605 674 1475; Mul 1694 216 1017; Mul 1591 274 1385].
Definition casadi_f0_899 : list instruction := [
  Add 1694 1694 1591; Mul 1591 296 1694; Sub 1605 1605 1591; Mul 1591 676 1215; Mul 1481 215 1481;
  Mul 1469 270 1698; Add 1481 1481 1469; Mul 1207 216 1207; Mul 1469 281 1385; Add 1207 1207 1469;
  Sub 1481 1481 1207; Mul 1207 255 1481; Add 1591 1591 1207; Add 1605 1605 1591; Add 1536 1536 1605;
  Mul 1605 602 1048; Mul 1591 523 1669; Add 1605 1605 1591; Mul 1591 671 1411; Mul 1207 502 1156;
  Add 1591 1591 1207; Add 1605 1605 1591; Sub 1605 1536 1605; Mul 1605 672 1605; Mul 1591 502 1605;
  Add 1077 1077 1591; Mul 1591 679 1608; Mul 1102 216 1102; Mul 1207 290 1385; Sub 1102 1102 1207;
  Mul 1207 676 1097; Mul 1469 278 1481; Add 1207 1207 1469; Mul 1469 680 1475; Mul 1195 274 1698;
  Mul 1017 215 1017; Sub 1195 1195 1017; Mul 1017 296 1195; Add 1469 1469 1017; Add 1207 1207 1469;
  Sub 1102 1102 1207; Mul 1207 671 1608; Mul 1469 505 1156; Add 1207 1207 1469; Mul 1469 670 1048;
  Mul 1017 523 1255; Add 1469 1469 1017; Add 1207 1207 1469; Add 1207 1102 1207; Mul 1207 672 1207;
  Mul 1469 505 1207; Add 1591 1591 1469; Sub 1077 1077 1591; Add 1593 1593 1077; Mul 1684 674 1684;
  Mul 1077 633 1694; Sub 1684 1684 1077; Mul 1096 680 1096; Mul 1077 657 1195; Add 1096 1096 1077;
  Mul 1247 275 1247; Mul 1177 631 1177; Add 1077 1247 1177; Mul 1591 629 1268; Mul 1469 282 1400;
  Add 1017 1591 1469; Mul 1079 655 1108; Mul 1257 271 1655; Add 1276 1079 1257; Add 1177 1177 1247;
  Add 1247 1276 1177; Add 1017 1017 1247; Sub 1345 1077 1017; Add 1469 1469 1591; Add 1257 1257 1079;
  Add 1077 1257 1077; Add 1469 1469 1077; Sub 1177 1177 1469; Sub 1345 1345 1177; Mul 1325 329 1325;
  Mul 1296 636 1296; Add 1177 1325 1296; Mul 1079 634 1582; Mul 1591 336 1426; Add 1449 1079 1591;
  Mul 1571 659 1638; Mul 1140 325 1284; Add 1396 1571 1140; Add 1296 1296 1325; Add 1325 1396 1296;
  Add 1449 1449 1325; Sub 1456 1177 1449; Add 1591 1591 1079; Add 1140 1140 1571; Add 1177 1140 1177;
  Add 1591 1591 1177; Sub 1296 1296 1591; Sub 1456 1456 1296; Mul 1659 384 1659; Mul 1231 641 1231;
  Add 1296 1659 1231; Mul 1571 639 1200; Mul 1079 391 1126; Add 1494 1571 1079; Mul 1248 663 1123;
  Mul 1237 381 1326; Add 1633 1248 1237; Add 1231 1231 1659; Add 1659 1633 1231; Add 1494 1494 1659;
  Sub 1588 1296 1494; Add 1079 1079 1571; Add 1237 1237 1248; Add 1296 1237 1296; Add 1079 1079 1296;
  Sub 1231 1231 1079; Sub 1588 1588 1231; Mul 1019 438 1019; Mul 1231 646 1036; Add 1248 1019 1231;
  Mul 1571 644 1667; Mul 1037 445 1042; Add 1143 1571 1037; Mul 1386 667 1196; Mul 1492 434 1589;
  Add 1353 1386 1492; Add 1231 1231 1019; Add 1019 1353 1231; Add 1143 1143 1019; Sub 1089 1248 1143;
  Add 1037 1037 1571; Add 1492 1492 1386; Add 1248 1492 1248; Add 1037 1037 1248; Sub 1231 1231 1037;
  Sub 1089 1089 1231; Add 1588 1588 1089; Add 1456 1456 1588; Add 1345 1345 1456; Mul 1345 676 1345;
  Mul 1231 687 1481; Add 1386 1345 1231; Sub 1096 1096 1386; Add 1684 1684 1096; Mul 1162 215 1162;
  Mul 1096 552 1698; Add 1162 1162 1096; Mul 1075 216 1075; Mul 1096 568 1385].
Definition casadi_f0_900 : list instruction := [
  Sub 1075 1075 1096; Sub 1162 1162 1075; Add 1684 1684 1162; Add 1593 1593 1684; Mul 1593 2 1593;
  Mul 1684 649 1599; Add 1593 1593 1684; Add 1420 1420 1593; Mul 1308 677 1308; Mul 1593 216 1564;
  Mul 1684 309 1385; Sub 1593 1593 1684; Mul 1684 215 1521; Mul 1162 332 1698; Add 1684 1684 1162;
  Add 1593 1593 1684; Mul 1684 484 1593; Add 1308 1308 1684; Mul 1684 706 1439; Mul 1162 216 1539;
  Mul 1075 349 1385; Sub 1162 1162 1075; Mul 1075 513 1162; Add 1684 1684 1075; Mul 1075 712 1388;
  Mul 1096 215 1539; Mul 1386 349 1698; Add 1096 1096 1386; Mul 1386 530 1096; Add 1075 1075 1386;
  Add 1684 1684 1075; Sub 1308 1308 1684; Mul 1684 711 1188; Mul 1075 706 1124; Mul 1386 519 1162;
  Add 1075 1075 1386; Mul 1386 677 1188; Mul 1571 494 1593; Add 1386 1386 1571; Add 1075 1075 1386;
  Mul 1386 215 1402; Mul 1571 344 1698; Add 1386 1386 1571; Mul 1571 714 1539; Mul 1491 216 1361;
  Mul 1243 328 1385; Sub 1491 1491 1243; Mul 1243 349 1491; Add 1571 1571 1243; Mul 1243 716 1564;
  Mul 1384 216 1384; Mul 1517 335 1385; Sub 1384 1384 1517; Mul 1176 215 1176; Mul 1517 324 1698;
  Add 1176 1176 1517; Add 1384 1384 1176; Mul 1176 309 1384; Add 1243 1243 1176; Add 1571 1571 1243;
  Add 1386 1386 1571; Sub 1075 1075 1386; Mul 1075 156 1075; Mul 1571 494 1075; Add 1684 1684 1571;
  Mul 1571 719 1634; Mul 1243 716 1521; Mul 1176 332 1384; Add 1243 1243 1176; Mul 1176 718 1539;
  Mul 1361 215 1361; Mul 1517 328 1698; Add 1361 1361 1517; Mul 1517 349 1361; Add 1176 1176 1517;
  Add 1243 1243 1176; Mul 1402 216 1402; Mul 1176 344 1385; Sub 1402 1402 1176; Sub 1243 1243 1402;
  Mul 1402 677 1634; Mul 1176 497 1593; Add 1402 1402 1176; Mul 1176 712 1124; Mul 1517 519 1096;
  Add 1176 1176 1517; Add 1402 1402 1176; Sub 1402 1243 1402; Mul 1402 156 1402; Mul 1176 497 1402;
  Add 1571 1571 1176; Sub 1684 1684 1571; Add 1308 1308 1684; Mul 1456 716 1456; Mul 1684 694 1384;
  Add 1571 1456 1684; Mul 1675 718 1675; Mul 1176 661 1361; Add 1675 1675 1176; Sub 1571 1571 1675;
  Mul 1443 714 1443; Mul 1675 638 1491; Add 1443 1443 1675; Sub 1571 1571 1443; Mul 1270 216 1270;
  Mul 1443 582 1385; Sub 1270 1270 1443; Mul 1688 215 1688; Mul 1443 618 1698; Add 1688 1688 1443;
  Sub 1270 1270 1688; Add 1571 1571 1270; Add 1308 1308 1571; Mul 1308 3 1308; Mul 1571 681 1076;
  Add 1308 1308 1571; Add 1420 1420 1308; Mul 1308 715 1542; Mul 1571 327 1657; Mul 1270 405 1664;
  Add 1571 1571 1270; Mul 1270 318 1380; Mul 1688 387 1217; Add 1270 1270 1688; Sub 1571 1571 1270;
  Mul 1270 510 1571; Add 1308 1308 1270; Mul 1270 721 1597; Mul 1688 318 1620; Mul 1443 363 1217;
  Add 1688 1688 1443; Mul 1443 310 1657; Mul 1675 405 1570; Add 1443 1443 1675; Sub 1688 1688 1443;
  Mul 1443 528 1688; Add 1270 1270 1443; Add 1308 1308 1270; Mul 1270 722 1223; Mul 1443 310 1380;
  Mul 1675 387 1570; Add 1443 1443 1675; Mul 1675 327 1620; Mul 1176 363 1664; Add 1675 1675 1176;
  Sub 1443 1443 1675; Mul 1675 479 1443; Add 1270 1270 1675; Add 1308 1308 1270].
Definition casadi_f0_901 : list instruction := [
  Mul 1270 726 1450; Mul 1675 318 1547; Mul 1176 404 1217; Add 1675 1675 1176; Mul 1176 310 1103;
  Mul 1517 399 1570; Add 1176 1176 1517; Sub 1675 1675 1176; Mul 1176 725 1657; Mul 1517 327 1174;
  Mul 1062 383 1664; Add 1517 1517 1062; Mul 1062 318 1578; Mul 1559 379 1217; Add 1062 1062 1559;
  Sub 1517 1517 1062; Mul 1062 405 1517; Add 1176 1176 1062; Mul 1062 727 1620; Mul 1578 310 1578;
  Mul 1559 379 1570; Add 1578 1578 1559; Mul 1559 327 1415; Mul 1480 390 1664; Add 1559 1559 1480;
  Sub 1578 1578 1559; Mul 1559 363 1578; Add 1062 1062 1559; Sub 1176 1176 1062; Add 1675 1675 1176;
  Mul 1176 715 1704; Mul 1062 515 1571; Add 1176 1176 1062; Mul 1062 722 1450; Mul 1559 486 1443;
  Add 1062 1062 1559; Sub 1176 1176 1062; Sub 1176 1675 1176; Mul 1176 723 1176; Mul 1062 486 1176;
  Add 1270 1270 1062; Mul 1062 730 1691; Mul 1103 327 1103; Mul 1559 399 1664; Add 1103 1103 1559;
  Mul 1559 318 1442; Mul 1480 408 1217; Add 1559 1559 1480; Sub 1103 1103 1559; Mul 1559 727 1380;
  Mul 1480 387 1578; Add 1559 1559 1480; Mul 1480 731 1657; Mul 1415 318 1415; Mul 1133 390 1217;
  Add 1415 1415 1133; Mul 1174 310 1174; Mul 1133 383 1570; Add 1174 1174 1133; Sub 1415 1415 1174;
  Mul 1174 405 1415; Add 1480 1480 1174; Sub 1559 1559 1480; Add 1103 1103 1559; Mul 1559 722 1691;
  Mul 1480 489 1443; Add 1559 1559 1480; Mul 1480 721 1704; Mul 1174 515 1688; Add 1480 1480 1174;
  Sub 1559 1559 1480; Sub 1559 1103 1559; Mul 1559 723 1559; Mul 1480 489 1559; Add 1062 1062 1480;
  Sub 1270 1270 1062; Add 1308 1308 1270; Mul 1270 725 1159; Mul 1062 643 1517; Add 1270 1270 1062;
  Mul 1062 731 1110; Mul 1480 665 1415; Add 1062 1062 1480; Mul 1480 727 1588; Mul 1174 701 1578;
  Add 1133 1480 1174; Add 1062 1062 1133; Add 1270 1270 1062; Mul 1062 310 1320; Mul 1133 620 1570;
  Add 1062 1062 1133; Mul 1133 327 1467; Mul 1401 595 1664; Add 1133 1133 1401; Mul 1595 318 1595;
  Mul 1401 395 1217; Add 1646 1595 1401; Add 1133 1133 1646; Add 1062 1062 1133; Sub 1270 1270 1062;
  Add 1308 1308 1270; Mul 1270 4 1308; Mul 1062 720 1170; Add 1270 1270 1062; Add 1420 1420 1270;
  Mul 1270 728 1407; Mul 1062 372 1332; Mul 1133 459 1584; Add 1062 1062 1133; Mul 1133 369 1142;
  Mul 1646 441 1558; Add 1133 1133 1646; Sub 1062 1062 1133; Mul 1133 443 1062; Add 1270 1270 1133;
  Mul 1133 733 1226; Mul 1646 369 1111; Mul 1654 417 1558; Add 1646 1646 1654; Mul 1654 358 1332;
  Mul 1540 459 1224; Add 1654 1654 1540; Sub 1646 1646 1654; Mul 1654 426 1646; Add 1133 1133 1654;
  Add 1270 1270 1133; Mul 1133 734 1030; Mul 1654 358 1142; Mul 1540 441 1224; Add 1654 1654 1540;
  Mul 1540 372 1111; Mul 1165 417 1584; Add 1540 1540 1165; Sub 1654 1654 1540; Mul 1540 478 1654;
  Add 1133 1133 1540; Add 1270 1270 1133; Mul 1133 735 1667; Mul 1540 369 1146; Mul 1165 458 1558;
  Add 1540 1540 1165; Mul 1165 358 1563; Mul 1219 451 1224; Add 1165 1165 1219; Sub 1540 1540 1165;
  Mul 1165 736 1332; Mul 1219 372 1233; Mul 1288 437 1584; Add 1219 1219 1288].
Definition casadi_f0_902 : list instruction := [
  Mul 1288 369 1375; Mul 1114 432 1558; Add 1288 1288 1114; Sub 1219 1219 1288; Mul 1288 459 1219;
  Add 1165 1165 1288; Mul 1288 738 1111; Mul 1375 358 1375; Mul 1114 432 1224; Add 1375 1375 1114;
  Mul 1114 372 1147; Mul 1225 444 1584; Add 1114 1114 1225; Sub 1375 1375 1114; Mul 1114 417 1375;
  Add 1288 1288 1114; Sub 1165 1165 1288; Add 1540 1540 1165; Mul 1165 728 1036; Mul 1288 438 1062;
  Add 1165 1165 1288; Mul 1288 734 1667; Mul 1114 445 1654; Add 1288 1288 1114; Sub 1165 1165 1288;
  Sub 1540 1540 1165; Mul 1540 430 1540; Mul 1165 445 1540; Add 1133 1133 1165; Mul 1165 739 1196;
  Mul 1563 372 1563; Mul 1288 451 1584; Add 1563 1563 1288; Mul 1288 369 1181; Mul 1114 462 1558;
  Add 1288 1288 1114; Sub 1563 1563 1288; Mul 1288 738 1142; Mul 1114 441 1375; Add 1288 1288 1114;
  Mul 1114 741 1332; Mul 1147 369 1147; Mul 1225 444 1558; Add 1147 1147 1225; Mul 1233 358 1233;
  Mul 1225 437 1224; Add 1233 1233 1225; Sub 1147 1147 1233; Mul 1233 459 1147; Add 1114 1114 1233;
  Sub 1288 1288 1114; Add 1563 1563 1288; Mul 1288 734 1196; Mul 1114 434 1654; Add 1288 1288 1114;
  Mul 1114 733 1036; Mul 1233 438 1646; Add 1114 1114 1233; Sub 1288 1288 1114; Sub 1563 1563 1288;
  Mul 1563 430 1563; Mul 1288 434 1563; Add 1165 1165 1288; Sub 1133 1133 1165; Add 1270 1270 1133;
  Mul 1133 736 1419; Mul 1165 648 1219; Add 1133 1133 1165; Mul 1165 741 1376; Mul 1288 669 1147;
  Add 1165 1165 1288; Mul 1288 738 1089; Mul 1114 708 1375; Add 1233 1288 1114; Add 1165 1165 1233;
  Add 1133 1133 1165; Mul 1165 358 1662; Mul 1233 622 1224; Add 1165 1165 1233; Mul 1233 372 1706;
  Mul 1225 608 1584; Add 1233 1233 1225; Mul 1532 369 1532; Mul 1225 449 1558; Add 1213 1532 1225;
  Add 1233 1233 1213; Add 1165 1165 1233; Sub 1133 1133 1165; Add 1270 1270 1133; Mul 1133 5 1270;
  Mul 1165 732 1344; Add 1133 1133 1165; Add 1420 1420 1133; Mul 1133 286 1466; Mul 1165 212 1133;
  Mul 1165 107 1165; Mul 1233 745 1374; Mul 1213 737 1374; Mul 1275 9 1133; Add 1213 1213 1275;
  Mul 1275 743 1301; Mul 1406 286 1127; Mul 1525 8 1406; Add 1275 1275 1525; Sub 1213 1213 1275;
  Mul 1275 269 1213; Mul 1525 81 1275; Mul 1651 746 1321; Mul 1100 743 1374; Mul 1498 9 1406;
  Sub 1100 1100 1498; Mul 1133 8 1133; Mul 1498 737 1301; Sub 1133 1133 1498; Sub 1100 1100 1133;
  Mul 1133 53 1100; Add 1651 1651 1133; Mul 1133 66 1213; Mul 1498 742 1616; Sub 1133 1133 1498;
  Add 1651 1651 1133; Mul 1133 323 1651; Mul 1498 47 1133; Mul 1485 378 1651; Mul 1035 24 1485;
  Mul 1592 752 1470; Mul 1282 66 1100; Mul 1642 746 1616; Sub 1282 1282 1642; Mul 1642 742 1321;
  Mul 1213 53 1213; Add 1642 1642 1213; Sub 1282 1282 1642; Mul 1642 35 1282; Add 1592 1592 1642;
  Mul 1642 378 1592; Mul 1213 31 1642; Sub 1035 1035 1213; Mul 1213 753 1314; Mul 1501 15 1592;
  Add 1213 1213 1501; Mul 1501 16 1651; Mul 1543 747 1531; Sub 1501 1501 1543; Add 1213 1213 1501;
  Mul 1213 430 1213; Mul 1501 26 1213; Mul 1592 16 1592; Mul 1543 753 1531].
Definition casadi_f0_903 : list instruction := [
  Sub 1592 1592 1543; Mul 1543 747 1314; Mul 1651 15 1651; Add 1543 1543 1651; Sub 1592 1592 1543;
  Mul 1592 430 1592; Mul 1543 28 1592; Sub 1501 1501 1543; Mul 1543 16 1213; Mul 1651 755 1531;
  Sub 1543 1543 1651; Mul 1651 757 1314; Mul 1686 15 1592; Add 1651 1651 1686; Sub 1543 1543 1651;
  Mul 1651 25 1543; Mul 1686 16 1592; Mul 1259 757 1531; Sub 1686 1686 1259; Mul 1259 755 1314;
  Mul 1445 15 1213; Add 1259 1259 1445; Add 1686 1686 1259; Mul 1259 32 1686; Sub 1651 1651 1259;
  Add 1651 1501 1651; Add 1035 1035 1651; Mul 1651 19 1035; Mul 1259 751 1222; Sub 1651 1651 1259;
  Mul 1259 763 1470; Mul 1445 19 1282; Mul 1504 752 1222; Sub 1445 1445 1504; Mul 1504 378 1445;
  Mul 1250 31 1504; Mul 1290 380 1485; Sub 1250 1250 1290; Mul 1445 430 1445; Mul 1290 28 1445;
  Mul 1213 433 1213; Sub 1290 1290 1213; Mul 1213 16 1290; Mul 1026 764 1531; Sub 1213 1213 1026;
  Mul 1026 766 1314; Mul 1592 433 1592; Mul 1490 26 1445; Sub 1592 1592 1490; Mul 1490 15 1592;
  Add 1026 1026 1490; Add 1213 1213 1026; Mul 1026 32 1445; Mul 1490 198 1543; Sub 1026 1026 1490;
  Add 1213 1213 1026; Add 1250 1250 1213; Mul 1213 35 1250; Add 1259 1259 1213; Add 1651 1651 1259;
  Add 1485 1485 1543; Mul 1543 48 1485; Add 1259 1642 1686; Mul 1213 19 1259; Mul 1026 765 1222;
  Sub 1213 1213 1026; Mul 1026 768 1470; Add 1490 1504 1445; Mul 1707 35 1490; Add 1026 1026 1707;
  Sub 1213 1213 1026; Mul 1026 55 1213; Sub 1543 1543 1026; Add 1651 1651 1543; Add 1498 1498 1651;
  Mul 1651 66 1498; Mul 1543 749 1616; Sub 1651 1651 1543; Mul 1543 762 1321; Mul 1642 380 1642;
  Mul 1504 24 1504; Sub 1642 1642 1504; Mul 1592 16 1592; Mul 1531 766 1531; Sub 1592 1592 1531;
  Mul 1314 764 1314; Mul 1290 15 1290; Add 1314 1314 1290; Sub 1592 1592 1314; Mul 1686 198 1686;
  Mul 1445 25 1445; Sub 1686 1686 1445; Add 1592 1592 1686; Add 1642 1642 1592; Mul 1592 62 1213;
  Mul 1490 19 1490; Mul 1686 768 1222; Sub 1490 1490 1686; Mul 1686 765 1470; Mul 1259 35 1259;
  Add 1686 1686 1259; Add 1490 1490 1686; Mul 1686 48 1490; Sub 1592 1592 1686; Add 1592 1642 1592;
  Mul 1282 323 1282; Mul 1686 47 1282; Sub 1592 1592 1686; Mul 1686 53 1592; Add 1543 1543 1686;
  Add 1651 1651 1543; Mul 1543 86 1213; Sub 1651 1651 1543; Add 1525 1525 1651; Mul 1651 9 1525;
  Add 1233 1233 1651; Mul 1592 66 1592; Mul 1651 762 1616; Sub 1592 1592 1651; Mul 1651 749 1321;
  Mul 1498 53 1498; Add 1651 1651 1498; Sub 1592 1592 1651; Mul 1651 91 1213; Add 1592 1592 1651;
  Mul 1100 269 1100; Mul 1651 81 1100; Sub 1592 1592 1651; Mul 1651 8 1592; Mul 1498 758 1301;
  Sub 1651 1651 1498; Add 1233 1233 1651; Mul 1213 102 1213; Add 1651 1282 1490; Mul 1498 66 1651;
  Mul 1543 770 1616; Sub 1498 1498 1543; Mul 1543 772 1321; Add 1686 1133 1485; Mul 1259 53 1686;
  Add 1543 1543 1259; Add 1498 1498 1543; Add 1543 1100 1498; Mul 1259 8 1543; Mul 1445 773 1301;
  Sub 1259 1259 1445; Mul 1445 776 1374; Mul 1686 66 1686; Mul 1616 772 1616].
Definition casadi_f0_904 : list instruction := [
  Sub 1686 1686 1616; Mul 1321 770 1321; Mul 1651 53 1651; Add 1321 1321 1651; Sub 1686 1686 1321;
  Add 1321 1275 1686; Mul 1651 9 1321; Add 1445 1445 1651; Sub 1259 1259 1445; Mul 1259 108 1259;
  Sub 1213 1213 1259; Add 1233 1233 1213; Add 1165 1165 1233; Mul 1165 114 1165; Mul 1127 740 1127;
  Sub 1165 1165 1127; Mul 1466 774 1466; Mul 1525 8 1525; Mul 1127 745 1301; Sub 1525 1525 1127;
  Mul 1127 758 1374; Mul 1592 9 1592; Add 1127 1127 1592; Sub 1525 1525 1127; Mul 1374 773 1374;
  Mul 1543 9 1543; Add 1374 1374 1543; Mul 1321 8 1321; Mul 1301 776 1301; Sub 1321 1321 1301;
  Add 1374 1374 1321; Mul 1321 108 1374; Add 1525 1525 1321; Mul 1406 212 1406; Mul 1321 107 1406;
  Sub 1525 1525 1321; Mul 1525 113 1525; Add 1466 1466 1525; Sub 1165 1165 1466; Add 1420 1420 1165;
  Mul 1165 210 1420; Sub 1201 1201 1165; Div 1165 1221 92; Mul 1466 1069 1352; Sub 1165 1165 1466;
  Mul 1466 779 1165; Add 1574 1574 1362; Add 1458 1458 1239; Sub 1574 1574 1458; Add 1049 1049 1382;
  Add 1612 1612 1099; Sub 1049 1049 1612; Add 1187 1187 1049; Sub 1574 1574 1187; Add 1574 1574 1529;
  Add 1416 1416 1245; Add 1285 1285 1653; Sub 1416 1416 1285; Add 1508 1508 1434; Add 1650 1650 1636;
  Add 1508 1508 1650; Add 1618 1618 1603; Add 1141 1141 1557; Sub 1618 1618 1141; Add 1508 1508 1618;
  Sub 1416 1416 1508; Add 1416 1416 1341; Add 1190 1190 1359; Add 1479 1479 1625; Sub 1190 1190 1479;
  Add 1300 1300 1526; Add 1163 1163 1121; Add 1300 1300 1163; Add 1287 1287 1274; Add 1441 1441 1317;
  Sub 1287 1287 1441; Add 1300 1300 1287; Sub 1190 1190 1300; Add 1190 1190 1572; Add 1497 1497 1457;
  Add 1451 1451 1703; Sub 1497 1497 1451; Add 1363 1363 1094; Add 1679 1679 1032; Add 1363 1363 1679;
  Add 1607 1607 1433; Add 1312 1312 1483; Sub 1607 1607 1312; Add 1363 1363 1607; Sub 1497 1497 1363;
  Add 1497 1497 1427; Add 1185 1185 1109; Add 1556 1556 1343; Sub 1185 1185 1556; Add 1487 1487 1018;
  Add 1583 1583 1020; Add 1487 1487 1583; Add 1263 1263 1383; Add 1119 1119 1297; Sub 1263 1263 1119;
  Add 1487 1487 1263; Sub 1185 1185 1487; Add 1185 1185 1671; Add 1497 1497 1185; Add 1190 1190 1497;
  Add 1416 1416 1190; Add 1574 1574 1416; Mul 1574 216 1574; Mul 1671 780 1385; Sub 1574 1574 1671;
  Mul 1671 781 1698; Add 1152 1152 1548; Add 1209 1209 1203; Sub 1152 1152 1209; Sub 1087 1087 1152;
  Add 1506 1506 1702; Add 1672 1672 1278; Sub 1506 1506 1672; Add 1087 1087 1506; Sub 1087 1087 1193;
  Add 1678 1678 1117; Add 1135 1135 1092; Sub 1678 1678 1135; Add 1594 1594 1086; Add 1641 1641 1292;
  Add 1594 1594 1641; Add 1071 1071 1431; Add 1573 1573 1683; Sub 1071 1071 1573; Add 1594 1594 1071;
  Sub 1678 1678 1594; Sub 1678 1678 1368; Add 1355 1355 1389; Add 1640 1640 1199; Sub 1355 1355 1640;
  Add 1567 1567 1391; Add 1088 1088 1216; Add 1567 1567 1088; Add 1690 1690 1129; Add 1246 1246 1316;
  Sub 1690 1690 1246; Add 1567 1567 1690; Sub 1355 1355 1567; Sub 1355 1355 1522; Add 1251 1251 1192;
  Add 1477 1477 1682; Sub 1251 1251 1477; Add 1550 1550 1228; Add 1398 1398 1512].
Definition casadi_f0_905 : list instruction := [
  Add 1550 1550 1398; Add 1432 1432 1339; Add 1621 1621 1394; Sub 1432 1432 1621; Add 1550 1550 1432;
  Sub 1251 1251 1550; Sub 1251 1251 1392; Add 1696 1696 1131; Add 1116 1116 1581; Sub 1696 1696 1116;
  Add 1313 1313 1134; Add 1369 1369 1507; Add 1313 1313 1369; Add 1060 1060 1148; Add 1610 1610 1551;
  Sub 1060 1060 1610; Add 1313 1313 1060; Sub 1696 1696 1313; Sub 1696 1696 1632; Add 1251 1251 1696;
  Add 1355 1355 1251; Add 1678 1678 1355; Add 1087 1087 1678; Mul 1087 215 1087; Add 1671 1671 1087;
  Sub 1574 1574 1671; Sub 1417 1417 1643; Sub 1660 1660 1440; Sub 1289 1289 1647; Sub 1527 1527 1699;
  Sub 1346 1346 1524; Add 1527 1527 1346; Add 1289 1289 1527; Add 1660 1660 1289; Add 1417 1417 1660;
  Mul 1417 540 1417; Mul 1643 625 1151; Sub 1417 1417 1643; Mul 1643 651 1136; Sub 1484 1484 1305;
  Add 1473 1473 1210; Add 1256 1256 1459; Add 1347 1347 1617; Add 1499 1499 1502; Add 1347 1347 1499;
  Add 1256 1256 1347; Add 1473 1473 1256; Add 1484 1484 1473; Mul 1484 544 1484; Add 1643 1643 1484;
  Add 1417 1417 1643; Sub 1574 1574 1417; Mul 1574 0 1574; Mul 1417 23 1544; Add 1574 1574 1417;
  Mul 1236 508 1236; Mul 1417 534 1520; Add 1236 1236 1417; Add 1261 1261 1139; Mul 1173 482 1173;
  Mul 1051 511 1051; Add 1173 1173 1051; Sub 1261 1261 1173; Add 1590 1590 1261; Mul 1315 490 1315;
  Mul 1229 514 1229; Add 1315 1315 1229; Sub 1590 1590 1315; Add 1606 1606 1590; Mul 1191 498 1191;
  Mul 1125 518 1125; Add 1191 1191 1125; Sub 1606 1606 1191; Add 1318 1318 1606; Mul 1495 522 1495;
  Mul 1340 506 1340; Sub 1495 1495 1340; Sub 1318 1318 1495; Mul 1495 526 1318; Mul 1340 784 1681;
  Add 1495 1495 1340; Add 1175 1175 1425; Mul 1515 1304 1515; Add 1208 1208 1515; Mul 1208 20 1208;
  Add 1175 1175 1208; Add 1348 1348 1175; Mul 1370 1153 1370; Add 1670 1670 1370; Mul 1670 37 1670;
  Add 1348 1348 1670; Add 1533 1533 1348; Mul 1310 1212 1310; Add 1604 1604 1310; Mul 1604 80 1604;
  Add 1533 1533 1604; Add 1421 1421 1533; Mul 1122 1293 1122; Add 1430 1430 1122; Mul 1430 100 1430;
  Sub 1421 1421 1430; Mul 1421 536 1421; Mul 1430 496 1649; Add 1421 1421 1430; Add 1495 1495 1421;
  Sub 1236 1236 1495; Mul 1495 546 1232; Mul 1421 538 1372; Add 1495 1495 1421; Mul 1421 791 1680;
  Mul 1601 215 1601; Mul 1430 222 1698; Add 1601 1601 1430; Mul 1081 216 1081; Mul 1430 229 1385;
  Sub 1081 1081 1430; Sub 1601 1601 1081; Mul 1081 540 1338; Mul 1430 227 1151; Sub 1081 1081 1430;
  Mul 1430 544 1351; Mul 1604 219 1136; Add 1430 1430 1604; Sub 1081 1081 1430; Add 1601 1601 1081;
  Mul 1081 526 1218; Mul 1430 543 1681; Add 1081 1081 1430; Mul 1680 536 1680; Mul 1430 537 1649;
  Add 1680 1680 1430; Sub 1081 1081 1680; Sub 1081 1601 1081; Mul 1081 141 1081; Mul 1680 537 1081;
  Add 1421 1421 1680; Sub 1495 1495 1421; Add 1236 1236 1495; Mul 1495 556 1327; Mul 1371 560 1371;
  Add 1421 1495 1371; Sub 1378 1421 1378; Sub 1673 1303 1673; Sub 1324 1454 1324; Add 1673 1673 1324;
  Add 1371 1371 1495; Sub 1575 1575 1371; Add 1673 1673 1575; Sub 1378 1378 1673].
Definition casadi_f0_906 : list instruction := [
  Mul 1673 570 1624; Mul 1137 574 1137; Add 1575 1673 1137; Sub 1435 1575 1435; Sub 1447 1447 1687;
  Sub 1107 1107 1090; Add 1447 1447 1107; Add 1137 1137 1673; Sub 1478 1478 1137; Add 1447 1447 1478;
  Sub 1435 1435 1447; Mul 1447 584 1240; Mul 1658 588 1658; Add 1478 1447 1658; Sub 1518 1478 1518;
  Sub 1423 1423 1258; Sub 1322 1322 1695; Add 1423 1423 1322; Add 1658 1658 1447; Sub 1055 1055 1658;
  Add 1423 1423 1055; Sub 1518 1518 1423; Mul 1423 597 1186; Mul 1277 601 1277; Add 1055 1423 1277;
  Sub 1267 1055 1267; Sub 1496 1496 1367; Sub 1403 1403 1700; Add 1496 1496 1403; Add 1277 1277 1423;
  Sub 1311 1311 1277; Add 1496 1496 1311; Sub 1267 1267 1496; Mul 1496 610 1021; Mul 1628 614 1628;
  Add 1311 1496 1628; Sub 1465 1311 1465; Sub 1510 1510 1627; Sub 1460 1460 1149; Add 1510 1510 1460;
  Add 1628 1628 1496; Sub 1488 1488 1628; Add 1510 1510 1488; Sub 1465 1465 1510; Add 1267 1267 1465;
  Add 1518 1518 1267; Add 1435 1435 1518; Add 1378 1378 1435; Mul 1378 216 1378; Mul 1510 251 1385;
  Sub 1378 1378 1510; Mul 1510 230 1486; Mul 1349 225 1349; Add 1488 1510 1349; Mul 1323 231 1323;
  Mul 1496 223 1302; Sub 1323 1323 1496; Sub 1488 1488 1323; Mul 1661 560 1661; Mul 1496 553 1327;
  Add 1460 1661 1496; Mul 1291 244 1291; Mul 1697 248 1697; Add 1149 1291 1697; Sub 1460 1460 1149;
  Sub 1488 1488 1460; Mul 1327 558 1327; Mul 1474 560 1474; Add 1460 1327 1474; Mul 1399 243 1399;
  Mul 1674 249 1674; Add 1149 1399 1674; Sub 1460 1460 1149; Add 1488 1488 1460; Mul 1164 219 1164;
  Mul 1351 239 1351; Add 1164 1164 1351; Mul 1611 227 1611; Mul 1338 246 1338; Add 1611 1611 1338;
  Add 1164 1164 1611; Mul 1242 467 1242; Mul 1169 525 1169; Sub 1242 1242 1169; Add 1164 1164 1242;
  Mul 1112 231 1112; Mul 1242 559 1302; Sub 1112 1112 1242; Mul 1242 616 1486; Mul 1663 225 1663;
  Add 1242 1242 1663; Add 1112 1112 1242; Add 1164 1164 1112; Mul 1164 213 1164; Sub 1488 1488 1164;
  Mul 1112 572 1624; Mul 1462 574 1462; Add 1242 1112 1462; Mul 1145 284 1145; Mul 1098 258 1098;
  Add 1663 1145 1098; Sub 1242 1242 1663; Mul 1663 297 1108; Mul 1169 271 1665; Add 1611 1663 1169;
  Mul 1338 282 1238; Mul 1351 300 1268; Add 1460 1338 1351; Add 1611 1611 1460; Mul 1685 574 1685;
  Mul 1624 567 1624; Add 1460 1685 1624; Mul 1024 279 1024; Mul 1560 276 1560; Add 1149 1024 1560;
  Sub 1460 1460 1149; Add 1611 1611 1460; Sub 1242 1242 1611; Mul 1083 255 1083; Mul 1611 280 1215;
  Add 1083 1083 1611; Mul 1082 278 1082; Mul 1611 266 1097; Add 1082 1082 1611; Add 1083 1083 1082;
  Mul 1144 296 1144; Mul 1475 472 1475; Add 1144 1144 1475; Add 1083 1083 1144; Mul 1144 573 1268;
  Mul 1166 282 1166; Add 1144 1144 1166; Mul 1166 617 1108; Mul 1047 271 1047; Add 1166 1166 1047;
  Sub 1144 1144 1166; Add 1083 1083 1144; Mul 1083 213 1083; Sub 1242 1242 1083; Mul 1144 586 1240;
  Mul 1118 588 1118; Add 1166 1144 1118; Mul 1272 338 1272; Mul 1281 312 1281; Add 1047 1272 1281;
  Sub 1166 1166 1047; Mul 1047 351 1638; Mul 1475 325 1482; Add 1082 1047 1475].
Definition casadi_f0_907 : list instruction := [
  Mul 1611 336 1505; Mul 1460 354 1582; Add 1149 1611 1460; Add 1082 1082 1149; Mul 1587 588 1587;
  Mul 1240 581 1240; Add 1149 1587 1240; Mul 1676 333 1676; Mul 1554 330 1554; Add 1627 1676 1554;
  Sub 1149 1149 1627; Add 1082 1082 1149; Sub 1166 1166 1082; Mul 1154 309 1154; Mul 1082 334 1564;
  Add 1154 1154 1082; Mul 1546 332 1546; Mul 1082 320 1521; Add 1546 1546 1082; Add 1154 1154 1546;
  Mul 1424 349 1424; Mul 1539 474 1539; Add 1424 1424 1539; Add 1154 1154 1424; Mul 1424 587 1582;
  Mul 1468 336 1468; Add 1424 1424 1468; Mul 1468 619 1638; Mul 1579 325 1579; Add 1468 1468 1579;
  Sub 1424 1424 1468; Add 1154 1154 1424; Mul 1154 213 1154; Sub 1166 1166 1154; Mul 1424 599 1186;
  Mul 1016 601 1016; Add 1468 1424 1016; Mul 1545 393 1545; Mul 1586 366 1586; Add 1579 1545 1586;
  Sub 1468 1468 1579; Mul 1579 406 1123; Mul 1539 381 1648; Add 1546 1579 1539; Mul 1082 391 1535;
  Mul 1149 409 1200; Add 1627 1082 1149; Add 1546 1546 1627; Mul 1562 601 1562; Mul 1186 594 1186;
  Add 1627 1562 1186; Mul 1254 388 1254; Mul 1206 385 1206; Add 1423 1254 1206; Sub 1627 1627 1423;
  Add 1546 1546 1627; Sub 1468 1468 1546; Mul 1335 363 1335; Mul 1546 389 1620; Add 1335 1335 1546;
  Mul 1500 387 1500; Mul 1546 374 1380; Add 1500 1500 1546; Add 1335 1335 1500; Mul 1253 405 1253;
  Mul 1657 476 1657; Add 1253 1253 1657; Add 1335 1335 1253; Mul 1253 600 1200; Mul 1580 391 1580;
  Add 1253 1253 1580; Mul 1580 621 1123; Mul 1198 381 1198; Add 1580 1580 1198; Sub 1253 1253 1580;
  Add 1335 1335 1253; Mul 1335 213 1335; Sub 1468 1468 1335; Mul 1253 612 1021; Mul 1689 614 1689;
  Add 1580 1253 1689; Mul 1448 447 1448; Mul 1489 420 1489; Add 1198 1448 1489; Sub 1580 1580 1198;
  Mul 1198 460 1196; Mul 1657 434 1105; Add 1500 1198 1657; Mul 1546 445 1230; Mul 1627 463 1667;
  Add 1423 1546 1627; Add 1500 1500 1423; Mul 1568 614 1568; Mul 1021 607 1021; Add 1423 1568 1021;
  Mul 1639 442 1639; Mul 1091 439 1091; Add 1403 1639 1091; Sub 1423 1423 1403; Add 1500 1500 1423;
  Sub 1580 1580 1500; Mul 1500 417 1407; Mul 1423 443 1111; Add 1500 1500 1423; Mul 1423 441 1226;
  Mul 1403 426 1142; Add 1423 1423 1403; Add 1500 1500 1423; Mul 1423 459 1030; Mul 1332 478 1332;
  Add 1423 1423 1332; Add 1500 1500 1423; Mul 1423 611 1667; Mul 1413 445 1413; Add 1423 1423 1413;
  Mul 1413 623 1196; Mul 1034 434 1034; Add 1413 1413 1034; Sub 1423 1423 1413; Add 1500 1500 1423;
  Mul 1500 213 1500; Sub 1580 1580 1500; Add 1468 1468 1580; Add 1166 1166 1468; Add 1242 1242 1166;
  Add 1488 1488 1242; Mul 1488 215 1488; Mul 1423 470 1698; Add 1488 1488 1423; Sub 1378 1378 1488;
  Mul 1488 225 1537; Mul 1423 624 1486; Add 1413 1488 1423; Mul 1034 231 1227; Mul 1332 650 1302;
  Sub 1034 1034 1332; Sub 1413 1413 1034; Mul 1602 213 1602; Add 1332 1413 1602; Mul 1268 655 1268;
  Mul 1655 282 1655; Add 1403 1268 1655; Sub 1403 1645 1403; Mul 1400 271 1400; Mul 1108 629 1108;
  Add 1700 1400 1108; Add 1403 1403 1700; Mul 1180 213 1180; Sub 1700 1403 1180].
Definition casadi_f0_908 : list instruction := [
  Mul 1582 659 1582; Mul 1284 336 1284; Add 1367 1582 1284; Sub 1367 1493 1367; Mul 1426 325 1426;
  Mul 1638 634 1638; Add 1447 1426 1638; Add 1367 1367 1447; Mul 1295 213 1295; Sub 1447 1367 1295;
  Mul 1200 663 1200; Mul 1326 391 1326; Add 1322 1200 1326; Sub 1322 1511 1322; Mul 1126 381 1126;
  Mul 1123 639 1123; Add 1695 1126 1123; Add 1322 1322 1695; Mul 1211 213 1211; Sub 1695 1322 1211;
  Mul 1258 667 1667; Mul 1589 445 1589; Add 1673 1258 1589; Sub 1673 1668 1673; Mul 1042 434 1042;
  Mul 1107 644 1196; Add 1090 1042 1107; Add 1673 1673 1090; Mul 1549 213 1549; Sub 1090 1673 1549;
  Add 1695 1695 1090; Add 1447 1447 1695; Add 1700 1700 1447; Add 1332 1332 1700; Mul 1332 540 1332;
  Mul 1687 250 1151; Sub 1332 1332 1687; Mul 1227 225 1227; Mul 1486 650 1486; Add 1687 1227 1486;
  Mul 1537 231 1537; Mul 1302 624 1302; Sub 1537 1537 1302; Add 1486 1486 1227; Mul 1104 242 1104;
  Mul 1167 626 1167; Sub 1104 1104 1167; Add 1167 1486 1104; Add 1227 1537 1167; Sub 1227 1687 1227;
  Add 1687 1687 1104; Add 1537 1537 1687; Sub 1486 1486 1537; Sub 1227 1227 1486; Sub 1257 1257 1017;
  Sub 1276 1276 1469; Sub 1257 1257 1276; Sub 1140 1140 1449; Sub 1396 1396 1591; Sub 1140 1140 1396;
  Sub 1237 1237 1494; Sub 1633 1633 1079; Sub 1237 1237 1633; Sub 1492 1492 1143; Sub 1353 1353 1037;
  Sub 1492 1492 1353; Add 1237 1237 1492; Add 1140 1140 1237; Add 1257 1257 1140; Add 1227 1227 1257;
  Mul 1353 544 1227; Mul 1037 806 1136; Add 1353 1353 1037; Add 1332 1332 1353; Sub 1378 1378 1332;
  Add 1236 1236 1378; Mul 1236 216 1236; Mul 1378 652 1385; Sub 1236 1236 1378; Mul 1378 804 1698;
  Mul 1503 508 1503; Mul 1332 521 1520; Add 1503 1503 1332; Add 1360 1360 1515; Mul 1360 20 1360;
  Add 1038 1038 1074; Sub 1360 1360 1038; Sub 1235 1360 1235; Add 1666 1666 1370; Mul 1666 37 1666;
  Add 1235 1235 1666; Sub 1453 1235 1453; Add 1204 1204 1310; Mul 1204 80 1204; Add 1453 1453 1204;
  Add 1409 1409 1453; Sub 1241 1241 1122; Mul 1241 100 1241; Add 1409 1409 1241; Mul 1409 526 1409;
  Mul 1241 499 1681; Add 1409 1409 1241; Mul 1318 536 1318; Mul 1241 784 1649; Add 1318 1318 1241;
  Add 1409 1409 1318; Sub 1503 1503 1409; Mul 1218 791 1218; Mul 1081 543 1081; Add 1218 1218 1081;
  Mul 1232 539 1232; Mul 1081 538 1244; Add 1232 1232 1081; Sub 1218 1218 1232; Add 1503 1503 1218;
  Add 1349 1349 1510; Sub 1349 1349 1323; Add 1674 1674 1399; Add 1474 1474 1327; Sub 1674 1674 1474;
  Sub 1349 1349 1674; Add 1697 1697 1291; Add 1496 1496 1661; Sub 1697 1697 1496; Add 1349 1349 1697;
  Add 1349 1349 1164; Add 1560 1560 1024; Add 1624 1624 1685; Sub 1560 1560 1624; Add 1351 1351 1338;
  Add 1169 1169 1663; Add 1351 1351 1169; Add 1098 1098 1145; Add 1462 1462 1112; Sub 1098 1098 1462;
  Add 1351 1351 1098; Sub 1560 1560 1351; Add 1560 1560 1083; Add 1554 1554 1676; Add 1240 1240 1587;
  Sub 1554 1554 1240; Add 1460 1460 1611; Add 1475 1475 1047; Add 1460 1460 1475; Add 1281 1281 1272;
  Add 1118 1118 1144; Sub 1281 1281 1118; Add 1460 1460 1281; Sub 1554 1554 1460].
Definition casadi_f0_909 : list instruction := [
  Add 1554 1554 1154; Add 1206 1206 1254; Add 1186 1186 1562; Sub 1206 1206 1186; Add 1149 1149 1082;
  Add 1539 1539 1579; Add 1149 1149 1539; Add 1586 1586 1545; Add 1016 1016 1424; Sub 1586 1586 1016;
  Add 1149 1149 1586; Sub 1206 1206 1149; Add 1206 1206 1335; Add 1091 1091 1639; Add 1021 1021 1568;
  Sub 1091 1091 1021; Add 1627 1627 1546; Add 1657 1657 1198; Add 1627 1627 1657; Add 1489 1489 1448;
  Add 1689 1689 1253; Sub 1489 1489 1689; Add 1627 1627 1489; Sub 1091 1091 1627; Add 1091 1091 1500;
  Add 1206 1206 1091; Add 1554 1554 1206; Add 1560 1560 1554; Add 1349 1349 1560; Mul 1349 216 1349;
  Mul 1500 507 1385; Sub 1349 1349 1500; Add 1454 1454 1303; Sub 1371 1371 1350; Sub 1454 1454 1371;
  Sub 1585 1585 1421; Add 1454 1454 1585; Add 1422 1422 1168; Sub 1137 1137 1101; Sub 1422 1422 1137;
  Sub 1436 1436 1575; Add 1422 1422 1436; Add 1566 1566 1161; Sub 1658 1658 1354; Sub 1566 1566 1658;
  Sub 1337 1337 1478; Add 1566 1566 1337; Add 1053 1053 1693; Sub 1277 1277 1438; Sub 1053 1053 1277;
  Sub 1652 1652 1055; Add 1053 1053 1652; Add 1194 1194 1513; Sub 1628 1628 1132; Sub 1194 1194 1628;
  Sub 1644 1644 1311; Add 1194 1194 1644; Add 1053 1053 1194; Add 1566 1566 1053; Add 1422 1422 1566;
  Add 1454 1454 1422; Mul 1454 215 1454; Mul 1644 226 1698; Add 1454 1454 1644; Sub 1349 1349 1454;
  Sub 1687 1687 1167; Sub 1077 1077 1247; Sub 1177 1177 1325; Sub 1296 1296 1659; Sub 1248 1248 1019;
  Add 1296 1296 1248; Add 1177 1177 1296; Add 1077 1077 1177; Add 1687 1687 1077; Mul 1019 540 1687;
  Mul 1659 805 1151; Sub 1019 1019 1659; Add 1423 1423 1488; Sub 1034 1034 1423; Sub 1423 1034 1602;
  Add 1655 1655 1268; Add 1108 1108 1400; Add 1645 1645 1108; Sub 1655 1655 1645; Add 1645 1655 1180;
  Add 1284 1284 1582; Add 1638 1638 1426; Add 1493 1493 1638; Sub 1284 1284 1493; Add 1493 1284 1295;
  Add 1326 1326 1200; Add 1123 1123 1126; Add 1511 1511 1123; Sub 1326 1326 1511; Add 1511 1326 1211;
  Add 1589 1589 1258; Add 1107 1107 1042; Add 1668 1668 1107; Sub 1589 1589 1668; Add 1668 1589 1549;
  Add 1511 1511 1668; Add 1493 1493 1511; Add 1645 1645 1493; Add 1423 1423 1645; Mul 1423 544 1423;
  Mul 1107 693 1136; Add 1423 1423 1107; Add 1019 1019 1423; Sub 1349 1349 1019; Add 1503 1503 1349;
  Mul 1503 215 1503; Add 1378 1378 1503; Sub 1236 1236 1378; Sub 1413 1413 1602; Add 1403 1403 1180;
  Add 1367 1367 1295; Add 1322 1322 1211; Add 1673 1673 1549; Add 1322 1322 1673; Add 1367 1367 1322;
  Add 1403 1403 1367; Add 1413 1413 1403; Mul 1413 216 1413; Mul 1378 305 1385; Sub 1413 1413 1378;
  Mul 1687 215 1687; Mul 1378 805 1698; Add 1687 1687 1378; Sub 1413 1413 1687; Add 1372 1372 1413;
  Mul 1372 540 1372; Mul 1413 307 1151; Sub 1372 1372 1413; Mul 1413 360 1136; Mul 1227 216 1227;
  Mul 1687 806 1385; Sub 1227 1227 1687; Add 1034 1034 1602; Sub 1655 1655 1180; Sub 1284 1284 1295;
  Sub 1326 1326 1211; Sub 1589 1589 1549; Add 1326 1326 1589; Add 1284 1284 1326; Add 1655 1655 1284;
  Add 1034 1034 1655; Mul 1034 215 1034; Mul 1549 700 1698; Add 1034 1034 1549].
Definition casadi_f0_910 : list instruction := [
  Sub 1227 1227 1034; Add 1244 1244 1227; Mul 1244 544 1244; Add 1413 1413 1244; Add 1372 1372 1413;
  Sub 1236 1236 1372; Mul 1236 1 1236; Mul 1372 469 1028; Add 1236 1236 1372; Add 1574 1574 1236;
  Mul 1236 602 1606; Mul 1372 783 1669; Add 1236 1236 1372; Mul 1372 670 1533; Mul 1413 488 1255;
  Add 1372 1372 1413; Add 1236 1236 1372; Mul 1372 671 1461; Mul 1413 532 1156; Add 1372 1372 1413;
  Sub 1236 1236 1372; Mul 1372 679 1048; Mul 1413 523 1207; Add 1372 1372 1413; Mul 1413 796 1411;
  Mul 1215 680 1215; Mul 1244 255 1195; Add 1215 1215 1244; Mul 1097 674 1097; Mul 1244 278 1694;
  Sub 1097 1097 1244; Sub 1215 1215 1097; Mul 1113 216 1113; Mul 1097 294 1385; Sub 1113 1113 1097;
  Mul 1252 215 1252; Mul 1097 299 1698; Add 1252 1252 1097; Add 1113 1113 1252; Sub 1215 1215 1113;
  Mul 1113 670 1411; Mul 1252 502 1255; Add 1113 1113 1252; Mul 1252 602 1608; Mul 1097 505 1669;
  Add 1252 1252 1097; Sub 1113 1113 1252; Sub 1113 1215 1113; Mul 1113 672 1113; Mul 1252 502 1113;
  Add 1413 1413 1252; Sub 1372 1372 1413; Add 1236 1236 1372; Mul 1372 674 1700; Mul 1413 794 1694;
  Sub 1372 1372 1413; Mul 1413 680 1257; Mul 1252 689 1195; Add 1097 1413 1252; Add 1358 1358 1283;
  Add 1319 1319 1692; Add 1665 1665 1319; Sub 1358 1358 1665; Add 1665 1358 1210; Add 1365 1365 1279;
  Add 1598 1598 1234; Add 1482 1482 1598; Sub 1365 1365 1482; Add 1482 1365 1459; Add 1455 1455 1552;
  Add 1410 1410 1509; Add 1648 1648 1410; Sub 1455 1455 1648; Add 1648 1455 1617; Add 1172 1172 1565;
  Add 1541 1541 1444; Add 1105 1105 1541; Sub 1172 1172 1105; Add 1105 1172 1502; Add 1648 1648 1105;
  Add 1482 1482 1648; Add 1665 1665 1482; Mul 1665 676 1665; Mul 1541 410 1481; Add 1665 1665 1541;
  Sub 1097 1097 1665; Add 1372 1372 1097; Mul 1097 215 1242; Mul 1665 461 1698; Add 1097 1097 1665;
  Mul 1435 216 1435; Mul 1665 277 1385; Sub 1435 1435 1665; Sub 1097 1097 1435; Add 1372 1372 1097;
  Add 1236 1236 1372; Mul 1236 216 1236; Mul 1372 707 1385; Sub 1236 1236 1372; Mul 1372 793 1698;
  Mul 1097 602 1453; Mul 1665 491 1669; Add 1097 1097 1665; Mul 1665 670 1606; Mul 1541 783 1255;
  Add 1665 1665 1541; Add 1097 1097 1665; Mul 1665 671 1528; Mul 1541 517 1156; Add 1665 1665 1541;
  Sub 1097 1097 1665; Mul 1665 796 1608; Mul 1541 505 1113; Add 1665 1665 1541; Mul 1541 675 1048;
  Mul 1444 523 1605; Add 1541 1541 1444; Sub 1665 1665 1541; Add 1097 1097 1665; Mul 1665 674 1077;
  Mul 1541 682 1694; Sub 1665 1665 1541; Mul 1541 680 1645; Mul 1444 808 1195; Add 1541 1541 1444;
  Add 1333 1333 1084; Sub 1238 1238 1333; Add 1022 1022 1093; Add 1238 1238 1022; Sub 1022 1238 1440;
  Add 1576 1576 1189; Sub 1505 1505 1576; Add 1271 1271 1631; Add 1505 1505 1271; Sub 1271 1505 1647;
  Add 1429 1429 1523; Sub 1535 1535 1429; Add 1158 1158 1471; Add 1535 1535 1158; Sub 1158 1535 1699;
  Add 1677 1677 1463; Sub 1230 1230 1677; Add 1157 1157 1622; Add 1230 1230 1157; Sub 1157 1230 1524;
  Add 1158 1158 1157; Add 1271 1271 1158; Add 1022 1022 1271; Mul 1022 676 1022].
Definition casadi_f0_911 : list instruction := [
  Mul 1622 301 1481; Add 1022 1022 1622; Sub 1541 1541 1022; Add 1541 1665 1541; Mul 1422 215 1422;
  Mul 1022 303 1698; Add 1622 1422 1022; Mul 1677 216 1560; Mul 1463 468 1385; Sub 1677 1677 1463;
  Sub 1622 1622 1677; Add 1541 1541 1622; Add 1097 1097 1541; Mul 1097 215 1097; Add 1372 1372 1097;
  Sub 1097 1236 1372; Mul 1077 215 1077; Mul 1541 682 1698; Add 1622 1077 1541; Mul 1677 216 1403;
  Mul 1463 792 1385; Sub 1677 1677 1463; Sub 1622 1622 1677; Add 1207 1207 1622; Mul 1622 540 1207;
  Mul 1677 233 1151; Sub 1622 1622 1677; Mul 1677 789 1136; Mul 1463 215 1655; Mul 1471 686 1698;
  Add 1463 1463 1471; Mul 1257 216 1257; Mul 1471 689 1385; Sub 1257 1257 1471; Sub 1463 1463 1257;
  Add 1605 1605 1463; Mul 1463 544 1605; Add 1677 1677 1463; Add 1622 1622 1677; Sub 1097 1097 1622;
  Mul 1097 2 1097; Mul 1622 285 1599; Add 1097 1097 1622; Add 1574 1574 1097; Mul 1097 677 1388;
  Mul 1622 530 1593; Add 1097 1097 1622; Mul 1622 706 1590; Mul 1677 782 1162; Add 1622 1622 1677;
  Mul 1677 712 1348; Mul 1463 481 1096; Add 1677 1677 1463; Add 1622 1622 1677; Sub 1097 1097 1622;
  Mul 1622 719 1124; Mul 1677 519 1402; Add 1622 1622 1677; Mul 1677 709 1188; Mul 1130 216 1130;
  Mul 1463 348 1385; Sub 1130 1130 1463; Mul 1538 215 1538; Mul 1463 353 1698; Add 1538 1538 1463;
  Add 1130 1130 1538; Mul 1521 714 1521; Mul 1538 332 1491; Add 1521 1521 1538; Mul 1564 718 1564;
  Mul 1538 309 1361; Add 1564 1564 1538; Sub 1521 1521 1564; Add 1130 1130 1521; Mul 1521 706 1634;
  Mul 1564 497 1162; Add 1521 1521 1564; Mul 1564 712 1188; Mul 1538 494 1096; Add 1564 1564 1538;
  Sub 1521 1521 1564; Sub 1521 1130 1521; Mul 1521 156 1521; Mul 1564 494 1521; Add 1677 1677 1564;
  Sub 1622 1622 1677; Add 1097 1097 1622; Mul 1622 716 1482; Mul 1677 403 1384; Add 1622 1622 1677;
  Mul 1677 718 1140; Mul 1564 696 1361; Add 1538 1677 1564; Sub 1622 1622 1538; Mul 1538 714 1447;
  Mul 1463 797 1491; Add 1538 1538 1463; Sub 1622 1622 1538; Mul 1518 216 1518; Mul 1538 331 1385;
  Sub 1518 1518 1538; Mul 1538 215 1166; Mul 1463 414 1698; Add 1538 1538 1463; Sub 1538 1518 1538;
  Add 1622 1622 1538; Add 1097 1097 1622; Mul 1097 216 1097; Mul 1622 790 1385; Sub 1097 1097 1622;
  Mul 1622 704 1698; Mul 1538 677 1439; Mul 1463 513 1593; Add 1538 1538 1463; Mul 1463 706 1235;
  Mul 1471 483 1162; Add 1463 1463 1471; Mul 1471 712 1590; Mul 1429 782 1096; Add 1471 1471 1429;
  Add 1463 1463 1471; Sub 1538 1538 1463; Mul 1463 709 1634; Mul 1471 497 1521; Add 1463 1463 1471;
  Mul 1471 711 1124; Mul 1429 519 1075; Add 1471 1471 1429; Sub 1463 1463 1471; Add 1538 1538 1463;
  Mul 1463 716 1271; Mul 1471 293 1384; Add 1463 1463 1471; Mul 1471 718 1493; Mul 1429 415 1361;
  Add 1471 1471 1429; Sub 1463 1463 1471; Mul 1471 714 1177; Mul 1429 685 1491; Add 1523 1471 1429;
  Sub 1463 1463 1523; Mul 1523 216 1554; Mul 1631 416 1385; Sub 1523 1523 1631; Mul 1566 215 1566;
  Mul 1631 357 1698; Add 1576 1566 1631; Sub 1523 1523 1576; Add 1463 1463 1523].
Definition casadi_f0_912 : list instruction := [
  Add 1538 1538 1463; Mul 1538 215 1538; Add 1622 1622 1538; Sub 1538 1097 1622; Mul 1463 216 1367;
  Mul 1523 795 1385; Sub 1463 1463 1523; Mul 1177 215 1177; Mul 1523 685 1698; Add 1576 1177 1523;
  Sub 1463 1463 1576; Add 1402 1402 1463; Mul 1463 540 1402; Mul 1576 697 1151; Sub 1463 1463 1576;
  Mul 1576 695 1136; Mul 1140 216 1140; Mul 1189 696 1385; Sub 1140 1140 1189; Mul 1189 215 1284;
  Mul 1093 448 1698; Add 1189 1189 1093; Sub 1189 1140 1189; Add 1075 1075 1189; Mul 1189 544 1075;
  Add 1576 1576 1189; Add 1463 1463 1576; Sub 1463 1538 1463; Mul 1463 3 1463; Mul 1576 691 1076;
  Add 1463 1463 1576; Add 1574 1574 1463; Mul 1463 715 1261; Mul 1576 606 1571; Add 1463 1463 1576;
  Mul 1576 721 1175; Mul 1189 786 1688; Add 1576 1576 1189; Add 1463 1463 1576; Mul 1576 722 1597;
  Mul 1189 528 1443; Add 1576 1576 1189; Add 1463 1463 1576; Mul 1576 730 1704; Mul 1189 515 1559;
  Add 1576 1576 1189; Mul 1189 683 1450; Mul 1442 310 1442; Mul 1093 408 1570; Add 1442 1442 1093;
  Mul 1547 327 1547; Mul 1093 404 1664; Add 1547 1547 1093; Sub 1442 1442 1547; Mul 1620 731 1620;
  Mul 1547 363 1415; Add 1620 1620 1547; Mul 1380 725 1380; Mul 1547 387 1517; Add 1380 1380 1547;
  Sub 1620 1620 1380; Add 1442 1442 1620; Mul 1620 721 1450; Mul 1380 486 1688; Add 1620 1620 1380;
  Mul 1380 715 1691; Mul 1547 489 1571; Add 1380 1380 1547; Sub 1620 1620 1380; Sub 1620 1442 1620;
  Mul 1620 723 1620; Mul 1380 486 1620; Add 1189 1189 1380; Sub 1576 1576 1189; Add 1463 1463 1576;
  Mul 1576 725 1695; Mul 1189 800 1517; Add 1576 1576 1189; Mul 1189 731 1237; Mul 1380 703 1415;
  Add 1547 1189 1380; Mul 1093 727 1648; Mul 1333 306 1578; Add 1093 1093 1333; Add 1547 1547 1093;
  Add 1576 1576 1547; Mul 1547 310 1468; Mul 1093 361 1570; Add 1547 1547 1093; Mul 1267 327 1267;
  Mul 1093 386 1664; Add 1333 1267 1093; Mul 1084 318 1497; Mul 1444 59 1217; Add 1084 1084 1444;
  Add 1333 1333 1084; Add 1547 1547 1333; Sub 1576 1576 1547; Add 1463 1463 1576; Mul 1576 216 1463;
  Mul 1547 690 1385; Sub 1576 1576 1547; Mul 1547 807 1698; Mul 1333 715 1360; Mul 1084 705 1571;
  Add 1333 1333 1084; Mul 1084 721 1261; Mul 1444 606 1688; Add 1084 1084 1444; Add 1333 1333 1084;
  Mul 1084 722 1542; Mul 1444 510 1443; Add 1084 1084 1444; Add 1333 1333 1084; Mul 1084 683 1691;
  Mul 1444 489 1620; Add 1084 1084 1444; Mul 1444 726 1704; Mul 1565 515 1176; Add 1444 1444 1565;
  Sub 1084 1084 1444; Add 1333 1333 1084; Mul 1084 725 1296; Mul 1444 692 1517; Add 1565 1084 1444;
  Mul 1410 731 1511; Mul 1509 465 1415; Add 1410 1410 1509; Mul 1509 727 1158; Mul 1552 785 1578;
  Add 1509 1509 1552; Add 1410 1410 1509; Add 1565 1565 1410; Mul 1053 310 1053; Mul 1410 412 1570;
  Add 1509 1053 1410; Mul 1552 327 1206; Mul 1598 407 1664; Add 1552 1552 1598; Mul 1598 318 1251;
  Mul 1234 580 1217; Add 1598 1598 1234; Add 1552 1552 1598; Add 1509 1509 1552; Sub 1565 1565 1509;
  Add 1333 1333 1565; Mul 1565 215 1333; Add 1547 1547 1565; Sub 1565 1576 1547].
Definition casadi_f0_913 : list instruction := [
  Mul 1296 310 1296; Mul 1509 692 1570; Add 1552 1296 1509; Mul 1598 327 1322; Mul 1234 798 1664;
  Add 1598 1598 1234; Mul 1234 318 1527; Mul 1279 640 1217; Add 1234 1234 1279; Add 1598 1598 1234;
  Add 1552 1552 1598; Sub 1559 1559 1552; Mul 1552 540 1559; Mul 1598 811 1151; Sub 1552 1552 1598;
  Mul 1598 813 1136; Mul 1234 310 1326; Mul 1279 464 1570; Add 1234 1234 1279; Mul 1237 327 1237;
  Mul 1279 703 1664; Add 1319 1237 1279; Mul 1692 318 1347; Mul 1283 662 1217; Add 1692 1692 1283;
  Add 1319 1319 1692; Add 1234 1234 1319; Sub 1176 1176 1234; Mul 1234 544 1176; Add 1598 1598 1234;
  Add 1552 1552 1598; Sub 1552 1565 1552; Mul 1552 4 1552; Mul 1598 812 1170; Add 1552 1552 1598;
  Add 1574 1574 1552; Mul 1552 728 1139; Mul 1598 609 1062; Add 1552 1552 1598; Mul 1598 733 1425;
  Mul 1234 604 1646; Add 1598 1598 1234; Add 1552 1552 1598; Mul 1598 734 1226; Mul 1234 426 1654;
  Add 1598 1598 1234; Add 1552 1552 1598; Mul 1598 739 1036; Mul 1234 438 1563; Add 1598 1598 1234;
  Mul 1234 816 1667; Mul 1181 358 1181; Mul 1319 462 1224; Add 1181 1181 1319; Mul 1146 372 1146;
  Mul 1319 458 1584; Add 1146 1146 1319; Sub 1181 1181 1146; Mul 1111 741 1111; Mul 1146 417 1147;
  Add 1111 1111 1146; Mul 1142 736 1142; Mul 1146 441 1219; Add 1142 1142 1146; Sub 1111 1111 1142;
  Add 1181 1181 1111; Mul 1111 733 1667; Mul 1142 445 1646; Add 1111 1111 1142; Mul 1142 728 1196;
  Mul 1146 434 1062; Add 1142 1142 1146; Sub 1111 1111 1142; Sub 1181 1181 1111; Mul 1181 430 1181;
  Mul 1111 445 1181; Add 1234 1234 1111; Sub 1598 1598 1234; Add 1552 1552 1598; Mul 1598 736 1090;
  Mul 1234 803 1219; Add 1598 1598 1234; Mul 1234 741 1492; Mul 1111 710 1147; Add 1142 1234 1111;
  Mul 1146 738 1105; Mul 1319 356 1375; Add 1146 1146 1319; Add 1142 1142 1146; Add 1598 1598 1142;
  Mul 1142 358 1580; Mul 1146 352 1224; Add 1142 1142 1146; Mul 1465 372 1465; Mul 1146 440 1584;
  Add 1319 1465 1146; Mul 1692 369 1185; Mul 1283 36 1558; Add 1692 1692 1283; Add 1319 1319 1692;
  Add 1142 1142 1319; Sub 1598 1598 1142; Add 1552 1552 1598; Mul 1598 216 1552; Mul 1142 814 1385;
  Sub 1598 1598 1142; Mul 1142 817 1698; Mul 1062 13 1062; Mul 1319 728 1074; Sub 1062 1062 1319;
  Mul 1319 733 1139; Mul 1646 609 1646; Add 1319 1319 1646; Add 1062 1062 1319; Mul 1319 734 1407;
  Mul 1654 443 1654; Add 1319 1319 1654; Add 1062 1062 1319; Mul 1319 816 1196; Mul 1654 434 1181;
  Add 1319 1319 1654; Mul 1654 735 1036; Mul 1646 438 1540; Add 1654 1654 1646; Sub 1319 1319 1654;
  Add 1062 1062 1319; Mul 1319 736 1248; Mul 1654 699 1219; Add 1646 1319 1654; Mul 1692 741 1668;
  Mul 1283 394 1147; Add 1692 1692 1283; Mul 1283 738 1157; Mul 1244 245 1375; Add 1283 1283 1244;
  Add 1692 1692 1283; Add 1646 1646 1692; Mul 1194 358 1194; Mul 1692 466 1224; Add 1283 1194 1692;
  Mul 1244 372 1091; Mul 1227 359 1584; Add 1244 1244 1227; Mul 1227 369 1696; Mul 1034 593 1558;
  Add 1227 1227 1034; Add 1244 1244 1227; Add 1283 1283 1244; Sub 1646 1646 1283].
Definition casadi_f0_914 : list instruction := [
  Add 1062 1062 1646; Mul 1646 215 1062; Add 1142 1142 1646; Sub 1646 1598 1142; Mul 1248 358 1248;
  Mul 1283 699 1224; Add 1244 1248 1283; Mul 1227 372 1673; Mul 1034 801 1584; Add 1227 1227 1034;
  Mul 1034 369 1346; Mul 1549 645 1558; Add 1034 1034 1549; Add 1227 1227 1034; Add 1244 1244 1227;
  Sub 1563 1563 1244; Mul 1244 540 1563; Mul 1227 820 1151; Sub 1244 1244 1227; Mul 1227 822 1136;
  Mul 1034 358 1589; Mul 1549 457 1224; Add 1034 1034 1549; Mul 1492 372 1492; Mul 1549 710 1584;
  Add 1211 1492 1549; Mul 1295 369 1499; Mul 1180 666 1558; Add 1295 1295 1180; Add 1211 1211 1295;
  Add 1034 1034 1211; Sub 1540 1540 1034; Mul 1034 544 1540; Add 1227 1227 1034; Add 1244 1244 1227;
  Sub 1244 1646 1244; Mul 1244 5 1244; Mul 1227 821 1344; Add 1244 1244 1227; Add 1574 1574 1244;
  Mul 1100 85 1100; Mul 1275 79 1275; Sub 1100 1100 1275; Mul 1282 54 1282; Mul 1133 61 1133;
  Sub 1282 1282 1133; Mul 1250 19 1250; Mul 1133 763 1222; Sub 1250 1250 1133; Mul 1133 751 1470;
  Mul 1035 35 1035; Add 1133 1133 1035; Sub 1250 1250 1133; Mul 1490 55 1490; Mul 1485 62 1485;
  Sub 1490 1490 1485; Add 1250 1250 1490; Add 1282 1282 1250; Mul 1498 86 1498; Mul 1686 91 1686;
  Sub 1498 1498 1686; Add 1498 1282 1498; Add 1100 1100 1498; Mul 1374 102 1374; Sub 1374 1100 1374;
  Mul 1406 101 1406; Add 1374 1374 1406; Add 1574 1574 1374; Mul 1374 777 1574; Sub 1466 1466 1374;
  Add 1201 1201 1466; Div 1466 1025 92; Mul 1374 1023 1352; Sub 1466 1466 1374; Mul 1374 767 1466;
  Mul 1660 674 1660; Mul 1406 630 1694; Sub 1660 1660 1406; Mul 1406 654 1195; Mul 1473 680 1473;
  Add 1406 1406 1473; Add 1231 1231 1345; Sub 1406 1406 1231; Add 1660 1660 1406; Mul 1406 615 1698;
  Mul 1678 215 1678; Add 1406 1406 1678; Mul 1416 216 1416; Mul 1678 7 1385; Sub 1416 1416 1678;
  Sub 1406 1406 1416; Add 1660 1660 1406; Mul 1660 0 1660; Mul 1406 771 1544; Add 1660 1660 1406;
  Mul 1406 748 1656; Mul 1416 216 1048; Mul 1678 523 1385; Sub 1416 1416 1678; Add 1416 1694 1416;
  Mul 1416 672 1416; Mul 1678 545 1416; Sub 1406 1406 1678; Mul 1678 216 1411; Mul 1231 502 1385;
  Sub 1678 1678 1231; Mul 1231 215 1608; Mul 1345 505 1698; Add 1231 1231 1345; Add 1678 1678 1231;
  Sub 1678 1678 1481; Mul 1678 672 1678; Mul 1231 504 1678; Mul 1345 750 1601; Add 1231 1231 1345;
  Mul 1345 215 1048; Mul 1473 523 1698; Add 1345 1345 1473; Sub 1345 1195 1345; Mul 1345 672 1345;
  Mul 1473 541 1345; Mul 1498 627 1179; Add 1473 1473 1498; Sub 1231 1231 1473; Add 1406 1406 1231;
  Mul 1528 215 1528; Mul 1231 517 1698; Add 1528 1528 1231; Mul 1461 216 1461; Mul 1231 532 1385;
  Sub 1461 1461 1231; Sub 1528 1528 1461; Mul 1461 627 1411; Mul 1231 502 1345; Add 1461 1461 1231;
  Mul 1231 748 1608; Mul 1473 505 1416; Sub 1231 1231 1473; Sub 1461 1461 1231; Add 1528 1528 1461;
  Mul 1528 508 1528; Mul 1461 744 1520; Add 1528 1528 1461; Mul 1461 215 1606; Mul 1231 783 1698;
  Add 1461 1461 1231; Mul 1533 216 1533; Mul 1231 488 1385; Sub 1533 1533 1231].
Definition casadi_f0_915 : list instruction := [
  Sub 1461 1461 1533; Mul 1533 748 1048; Mul 1416 523 1416; Sub 1533 1533 1416; Mul 1411 750 1411;
  Mul 1416 502 1678; Add 1411 1411 1416; Sub 1533 1533 1411; Add 1461 1461 1533; Mul 1461 536 1461;
  Mul 1533 824 1649; Add 1461 1461 1533; Sub 1528 1528 1461; Mul 1453 215 1453; Mul 1461 491 1698;
  Add 1453 1453 1461; Mul 1606 216 1606; Mul 1461 783 1385; Sub 1606 1606 1461; Sub 1453 1453 1606;
  Mul 1608 750 1608; Mul 1678 505 1678; Add 1608 1608 1678; Mul 1048 627 1048; Mul 1345 523 1345;
  Add 1048 1048 1345; Sub 1608 1608 1048; Add 1453 1453 1608; Mul 1453 526 1453; Mul 1608 825 1681;
  Add 1453 1453 1608; Sub 1528 1528 1453; Add 1406 1406 1528; Mul 1403 674 1403; Mul 1528 792 1694;
  Sub 1403 1403 1528; Add 1252 1252 1413; Mul 1413 298 1481; Sub 1358 1358 1210; Sub 1365 1365 1459;
  Sub 1455 1455 1617; Sub 1172 1172 1502; Add 1455 1455 1172; Add 1365 1365 1455; Add 1358 1358 1365;
  Mul 1502 676 1358; Add 1413 1413 1502; Sub 1252 1252 1413; Add 1403 1403 1252; Mul 1252 468 1698;
  Mul 1560 215 1560; Add 1252 1252 1560; Sub 1252 1252 1435; Add 1403 1403 1252; Mul 1403 216 1403;
  Mul 1252 823 1385; Sub 1403 1403 1252; Mul 1252 686 1195; Mul 1655 680 1655; Add 1252 1252 1655;
  Mul 1655 232 1481; Add 1238 1238 1440; Add 1505 1505 1647; Add 1535 1535 1699; Add 1230 1230 1524;
  Add 1535 1535 1230; Add 1505 1505 1535; Add 1238 1238 1505; Mul 1524 676 1238; Add 1655 1655 1524;
  Sub 1252 1252 1655; Add 1665 1665 1252; Add 1022 1022 1422; Mul 1242 216 1242; Mul 1422 461 1385;
  Sub 1242 1242 1422; Sub 1022 1022 1242; Add 1665 1665 1022; Mul 1665 215 1665; Mul 1022 668 1698;
  Add 1665 1665 1022; Sub 1403 1403 1665; Add 1541 1541 1077; Mul 1700 216 1700; Mul 1077 794 1385;
  Sub 1700 1700 1077; Sub 1541 1541 1700; Mul 1541 540 1541; Mul 1700 664 1151; Sub 1541 1541 1700;
  Mul 1700 808 1698; Mul 1645 215 1645; Add 1700 1700 1645; Sub 1700 1700 1257; Mul 1700 544 1700;
  Mul 1257 642 1136; Add 1700 1700 1257; Add 1541 1541 1700; Sub 1403 1403 1541; Add 1406 1406 1403;
  Mul 1406 1 1406; Mul 1403 760 1028; Add 1406 1406 1403; Add 1660 1660 1406; Mul 1207 674 1207;
  Mul 1406 233 1694; Sub 1207 1207 1406; Mul 1406 789 1195; Mul 1605 680 1605; Add 1406 1406 1605;
  Mul 1605 637 1481; Mul 1238 215 1238; Mul 1403 232 1698; Add 1238 1238 1403; Mul 1358 216 1358;
  Mul 1403 298 1385; Sub 1358 1358 1403; Sub 1238 1238 1358; Add 1113 1113 1238; Mul 1113 676 1113;
  Add 1605 1605 1113; Sub 1406 1406 1605; Add 1207 1207 1406; Sub 1372 1372 1236; Add 1207 1207 1372;
  Mul 1207 2 1207; Mul 1372 826 1599; Add 1207 1207 1372; Add 1660 1660 1207; Mul 1207 674 1402;
  Mul 1372 697 1694; Sub 1207 1207 1372; Mul 1372 695 1195; Mul 1236 680 1075; Add 1372 1372 1236;
  Mul 1236 647 1481; Mul 1406 216 1365; Mul 1605 411 1385; Sub 1406 1406 1605; Mul 1605 215 1505;
  Mul 1113 302 1698; Add 1605 1605 1113; Sub 1406 1406 1605; Add 1521 1521 1406; Mul 1406 676 1521;
  Add 1236 1236 1406; Sub 1372 1372 1236; Add 1207 1207 1372; Sub 1622 1622 1097].
Definition casadi_f0_916 : list instruction := [
  Add 1207 1207 1622; Mul 1207 3 1207; Mul 1622 347 1076; Add 1207 1207 1622; Add 1660 1660 1207;
  Mul 1207 674 1559; Mul 1622 811 1694; Sub 1207 1207 1622; Mul 1622 813 1195; Mul 1097 680 1176;
  Add 1622 1622 1097; Mul 1097 802 1481; Mul 1372 310 1535; Mul 1236 252 1570; Add 1372 1372 1236;
  Mul 1236 327 1455; Mul 1406 339 1664; Add 1236 1236 1406; Mul 1588 318 1588; Mul 1406 701 1217;
  Add 1605 1588 1406; Add 1236 1236 1605; Add 1372 1372 1236; Sub 1620 1620 1372; Mul 1372 676 1620;
  Add 1097 1097 1372; Sub 1622 1622 1097; Add 1207 1207 1622; Sub 1547 1547 1576; Add 1207 1207 1547;
  Mul 1207 4 1207; Mul 1547 698 1170; Add 1207 1207 1547; Add 1660 1660 1207; Mul 1207 674 1563;
  Mul 1547 820 1694; Sub 1207 1207 1547; Mul 1547 822 1195; Mul 1576 680 1540; Add 1547 1547 1576;
  Mul 1576 788 1481; Mul 1622 358 1230; Mul 1097 234 1224; Add 1622 1622 1097; Mul 1097 372 1172;
  Mul 1372 355 1584; Add 1097 1097 1372; Mul 1089 369 1089; Mul 1372 708 1558; Add 1236 1089 1372;
  Add 1097 1097 1236; Add 1622 1622 1097; Sub 1181 1181 1622; Mul 1622 676 1181; Add 1576 1576 1622;
  Sub 1547 1547 1576; Add 1207 1207 1547; Sub 1142 1142 1598; Add 1207 1207 1142; Mul 1207 5 1207;
  Mul 1142 809 1344; Add 1207 1207 1142; Add 1660 1660 1207; Sub 1100 1100 1660; Mul 1660 778 1100;
  Add 1374 1374 1660; Sub 1201 1201 1374; Div 1374 1269 92; Mul 1660 1516 1352; Sub 1374 1374 1660;
  Mul 1660 775 1374; Add 1684 1684 1456; Mul 1456 658 1361; Mul 1256 718 1256; Add 1456 1456 1256;
  Sub 1684 1684 1456; Mul 1456 635 1491; Mul 1289 714 1289; Add 1456 1456 1289; Sub 1684 1684 1456;
  Mul 1190 216 1190; Mul 1456 90 1385; Sub 1190 1190 1456; Mul 1456 566 1698; Mul 1355 215 1355;
  Add 1456 1456 1355; Sub 1190 1190 1456; Add 1684 1684 1190; Mul 1684 0 1684; Mul 1190 818 1544;
  Add 1684 1684 1190; Mul 1190 216 1124; Mul 1456 519 1385; Sub 1190 1190 1456; Sub 1190 1190 1491;
  Mul 1190 156 1190; Mul 1456 545 1190; Mul 1355 684 1656; Add 1456 1456 1355; Mul 1355 216 1188;
  Mul 1289 494 1385; Sub 1355 1355 1289; Mul 1289 215 1634; Mul 1256 497 1698; Add 1289 1289 1256;
  Add 1355 1355 1289; Sub 1355 1384 1355; Mul 1355 156 1355; Mul 1289 504 1355; Mul 1256 660 1601;
  Add 1289 1289 1256; Mul 1256 215 1124; Mul 1207 519 1698; Add 1256 1256 1207; Sub 1256 1256 1361;
  Mul 1256 156 1256; Mul 1207 541 1256; Mul 1142 827 1179; Add 1207 1207 1142; Sub 1289 1289 1207;
  Add 1456 1456 1289; Mul 1388 216 1388; Mul 1289 530 1385; Sub 1388 1388 1289; Mul 1439 215 1439;
  Mul 1289 513 1698; Add 1439 1439 1289; Sub 1388 1388 1439; Mul 1439 827 1188; Mul 1289 494 1256;
  Add 1439 1439 1289; Mul 1289 684 1634; Mul 1207 497 1190; Add 1289 1289 1207; Sub 1439 1439 1289;
  Add 1388 1388 1439; Mul 1439 508 1388; Mul 1289 656 1520; Add 1439 1439 1289; Mul 1348 216 1348;
  Mul 1289 481 1385; Sub 1348 1348 1289; Mul 1289 215 1590; Mul 1207 782 1698; Add 1289 1289 1207;
  Sub 1348 1348 1289; Mul 1289 684 1124; Mul 1207 519 1190; Add 1289 1289 1207].
Definition casadi_f0_917 : list instruction := [
  Mul 1188 660 1188; Mul 1207 494 1355; Add 1188 1188 1207; Sub 1289 1289 1188; Add 1348 1348 1289;
  Mul 1289 536 1348; Mul 1188 829 1649; Add 1289 1289 1188; Sub 1439 1439 1289; Mul 1590 216 1590;
  Mul 1289 782 1385; Sub 1590 1590 1289; Mul 1235 215 1235; Mul 1289 483 1698; Add 1235 1235 1289;
  Sub 1590 1590 1235; Mul 1634 660 1634; Mul 1235 497 1355; Add 1634 1634 1235; Mul 1124 827 1124;
  Mul 1235 519 1256; Add 1124 1124 1235; Sub 1634 1634 1124; Add 1590 1590 1634; Mul 1634 526 1590;
  Mul 1124 830 1681; Add 1634 1634 1124; Sub 1439 1439 1634; Add 1456 1456 1439; Mul 1439 411 1384;
  Mul 1365 716 1365; Add 1439 1439 1365; Add 1564 1564 1677; Sub 1439 1439 1564; Mul 1564 795 1491;
  Mul 1367 714 1367; Add 1564 1564 1367; Sub 1439 1439 1564; Mul 1564 416 1698; Mul 1554 215 1554;
  Add 1564 1564 1554; Sub 1518 1518 1564; Add 1439 1439 1518; Mul 1439 216 1439; Mul 1518 828 1385;
  Sub 1439 1439 1518; Mul 1518 302 1384; Mul 1505 716 1505; Add 1518 1518 1505; Mul 1505 448 1361;
  Mul 1284 718 1284; Add 1505 1505 1284; Sub 1518 1518 1505; Add 1429 1429 1471; Sub 1518 1518 1429;
  Mul 1166 216 1166; Mul 1429 414 1385; Sub 1166 1166 1429; Add 1631 1631 1566; Sub 1166 1166 1631;
  Add 1518 1518 1166; Mul 1518 215 1518; Mul 1166 832 1698; Add 1518 1518 1166; Sub 1166 1439 1518;
  Mul 1447 216 1447; Mul 1631 797 1385; Sub 1447 1447 1631; Add 1523 1523 1177; Sub 1447 1447 1523;
  Mul 1523 540 1447; Mul 1177 835 1151; Sub 1523 1523 1177; Mul 1177 415 1698; Mul 1493 215 1493;
  Add 1177 1177 1493; Sub 1140 1140 1177; Mul 1177 544 1140; Mul 1493 837 1136; Add 1177 1177 1493;
  Add 1523 1523 1177; Sub 1166 1166 1523; Add 1456 1456 1166; Mul 1456 1 1456; Mul 1166 632 1028;
  Add 1456 1456 1166; Add 1684 1684 1456; Mul 1190 678 1190; Mul 1456 684 1102; Add 1190 1190 1456;
  Mul 1256 673 1256; Mul 1456 827 1536; Add 1256 1256 1456; Mul 1355 799 1355; Mul 1456 660 1215;
  Add 1355 1355 1456; Add 1256 1256 1355; Add 1190 1190 1256; Mul 1590 602 1590; Mul 1256 830 1669;
  Add 1590 1590 1256; Mul 1348 670 1348; Mul 1256 829 1255; Add 1348 1348 1256; Mul 1388 671 1388;
  Mul 1256 656 1156; Add 1388 1388 1256; Sub 1348 1348 1388; Add 1590 1590 1348; Add 1190 1190 1590;
  Mul 1447 674 1447; Mul 1590 835 1694; Sub 1447 1447 1590; Mul 1140 680 1140; Mul 1590 837 1195;
  Add 1140 1140 1590; Mul 1482 216 1482; Mul 1590 403 1385; Sub 1482 1482 1590; Mul 1590 293 1698;
  Mul 1271 215 1271; Add 1590 1590 1271; Sub 1482 1482 1590; Mul 1482 676 1482; Mul 1590 839 1481;
  Add 1482 1482 1590; Sub 1140 1140 1482; Add 1447 1447 1140; Sub 1518 1518 1439; Add 1447 1447 1518;
  Add 1190 1190 1447; Mul 1190 2 1190; Mul 1447 834 1599; Add 1190 1190 1447; Add 1684 1684 1190;
  Mul 1190 647 1384; Mul 1521 716 1521; Add 1190 1190 1521; Mul 1521 695 1361; Mul 1075 718 1075;
  Add 1521 1521 1075; Sub 1190 1190 1521; Mul 1521 697 1491; Mul 1402 714 1402; Add 1521 1521 1402;
  Sub 1190 1190 1521; Add 1190 1190 1538; Mul 1190 3 1190; Mul 1538 836 1076].
Definition casadi_f0_918 : list instruction := [
  Add 1190 1190 1538; Add 1684 1684 1190; Mul 1190 802 1384; Mul 1538 716 1620; Add 1190 1190 1538;
  Mul 1538 813 1361; Mul 1521 718 1176; Add 1538 1538 1521; Sub 1190 1190 1538; Mul 1538 811 1491;
  Mul 1521 714 1559; Add 1538 1538 1521; Sub 1190 1190 1538; Add 1190 1190 1565; Mul 1190 4 1190;
  Mul 1565 702 1170; Add 1190 1190 1565; Add 1684 1684 1190; Mul 1190 788 1384; Mul 1565 716 1181;
  Add 1190 1190 1565; Mul 1565 822 1361; Mul 1538 718 1540; Add 1565 1565 1538; Sub 1190 1190 1565;
  Mul 1565 820 1491; Mul 1538 714 1563; Add 1565 1565 1538; Sub 1190 1190 1565; Add 1190 1190 1646;
  Mul 1190 5 1190; Mul 1646 810 1344; Add 1190 1190 1646; Add 1684 1684 1190; Add 1684 1684 1282;
  Mul 1282 769 1684; Sub 1660 1660 1282; Add 1201 1201 1660; Div 1660 1128 92; Mul 1282 1637 1352;
  Sub 1660 1660 1282; Mul 1282 815 1660; Mul 1190 640 1517; Mul 1527 725 1527; Add 1190 1190 1527;
  Mul 1527 662 1415; Mul 1347 731 1347; Add 1527 1527 1347; Add 1174 1174 1480; Add 1527 1527 1174;
  Add 1190 1190 1527; Mul 1527 580 1570; Mul 1251 310 1251; Add 1527 1527 1251; Mul 1251 59 1664;
  Mul 1497 327 1497; Add 1251 1251 1497; Add 1401 1401 1595; Add 1251 1251 1401; Add 1527 1527 1251;
  Sub 1190 1190 1527; Mul 1190 0 1190; Mul 1527 819 1544; Add 1190 1190 1527; Mul 1527 327 1704;
  Mul 1251 515 1664; Add 1527 1527 1251; Mul 1251 318 1691; Mul 1401 489 1217; Add 1251 1251 1401;
  Sub 1527 1527 1251; Sub 1527 1517 1527; Mul 1527 723 1527; Mul 1251 545 1527; Mul 1401 831 1656;
  Add 1251 1251 1401; Mul 1401 310 1691; Mul 1595 489 1570; Add 1401 1401 1595; Mul 1595 327 1450;
  Mul 1497 486 1664; Add 1595 1595 1497; Sub 1401 1401 1595; Sub 1401 1578 1401; Mul 1401 723 1401;
  Mul 1595 504 1401; Mul 1497 840 1601; Add 1595 1595 1497; Mul 1497 318 1450; Mul 1174 486 1217;
  Add 1497 1497 1174; Mul 1174 310 1704; Mul 1480 515 1570; Add 1174 1174 1480; Sub 1497 1497 1174;
  Sub 1497 1415 1497; Mul 1497 723 1497; Mul 1174 541 1497; Mul 1480 842 1179; Add 1174 1174 1480;
  Sub 1595 1595 1174; Add 1251 1251 1595; Mul 1595 842 1450; Mul 1174 486 1497; Add 1595 1595 1174;
  Mul 1174 831 1691; Mul 1480 489 1527; Add 1174 1174 1480; Sub 1595 1595 1174; Mul 1174 310 1542;
  Mul 1480 510 1570; Add 1174 1174 1480; Mul 1480 327 1597; Mul 1347 528 1664; Add 1480 1480 1347;
  Add 1174 1174 1480; Mul 1223 318 1223; Mul 1480 479 1217; Add 1223 1223 1480; Add 1174 1174 1223;
  Sub 1595 1595 1174; Mul 1174 508 1595; Mul 1223 841 1520; Add 1174 1174 1223; Mul 1223 831 1704;
  Mul 1480 515 1527; Add 1223 1223 1480; Mul 1450 840 1450; Mul 1480 486 1401; Add 1450 1450 1480;
  Sub 1223 1223 1450; Mul 1450 310 1261; Mul 1480 606 1570; Add 1450 1450 1480; Mul 1175 327 1175;
  Mul 1480 786 1664; Add 1175 1175 1480; Add 1450 1450 1175; Mul 1597 318 1597; Mul 1175 528 1217;
  Add 1597 1597 1175; Add 1450 1450 1597; Sub 1223 1223 1450; Mul 1450 536 1223; Mul 1597 844 1649;
  Add 1450 1450 1597; Sub 1174 1174 1450; Mul 1691 840 1691; Mul 1450 489 1401].
Definition casadi_f0_919 : list instruction := [
  Add 1691 1691 1450; Mul 1704 842 1704; Mul 1450 515 1497; Add 1704 1704 1450; Sub 1691 1691 1704;
  Mul 1360 310 1360; Mul 1704 705 1570; Add 1360 1360 1704; Mul 1261 327 1261; Mul 1704 606 1664;
  Add 1261 1261 1704; Add 1360 1360 1261; Mul 1542 318 1542; Mul 1261 510 1217; Add 1542 1542 1261;
  Add 1360 1360 1542; Sub 1691 1691 1360; Mul 1360 526 1691; Mul 1542 845 1681; Add 1360 1360 1542;
  Sub 1174 1174 1360; Add 1251 1251 1174; Add 1509 1509 1296; Mul 1296 800 1664; Mul 1695 327 1695;
  Add 1296 1296 1695; Mul 1695 643 1217; Mul 1159 318 1159; Add 1695 1695 1159; Add 1296 1296 1695;
  Add 1509 1509 1296; Mul 1296 540 1509; Mul 1695 843 1151; Sub 1296 1296 1695; Mul 1695 465 1570;
  Mul 1511 310 1511; Add 1695 1695 1511; Add 1279 1279 1237; Mul 1237 665 1217; Mul 1110 318 1110;
  Add 1237 1237 1110; Add 1279 1279 1237; Add 1695 1695 1279; Mul 1279 544 1695; Mul 1237 847 1136;
  Add 1279 1279 1237; Add 1296 1296 1279; Mul 1279 798 1517; Mul 1322 725 1322; Add 1279 1279 1322;
  Add 1380 1380 1189; Mul 1189 339 1578; Mul 1455 727 1455; Add 1189 1189 1455; Add 1380 1380 1189;
  Add 1279 1279 1380; Mul 1380 407 1570; Mul 1206 310 1206; Add 1380 1380 1206; Add 1093 1093 1267;
  Mul 1267 595 1217; Mul 1467 318 1467; Add 1267 1267 1467; Add 1093 1093 1267; Add 1380 1380 1093;
  Sub 1279 1279 1380; Mul 1279 216 1279; Mul 1380 848 1385; Sub 1279 1279 1380; Add 1444 1444 1084;
  Mul 1084 464 1415; Mul 1326 731 1326; Add 1084 1084 1326; Mul 1326 252 1578; Mul 1535 727 1535;
  Add 1326 1326 1535; Add 1084 1084 1326; Add 1444 1444 1084; Add 1410 1410 1053; Mul 1053 361 1664;
  Mul 1468 327 1468; Add 1053 1053 1468; Mul 1468 620 1217; Mul 1320 318 1320; Add 1468 1468 1320;
  Add 1053 1053 1468; Add 1410 1410 1053; Sub 1444 1444 1410; Mul 1444 215 1444; Mul 1410 850 1698;
  Add 1444 1444 1410; Sub 1410 1279 1444; Add 1296 1296 1410; Add 1251 1251 1296; Mul 1251 1 1251;
  Mul 1296 838 1028; Add 1251 1251 1296; Add 1190 1190 1251; Mul 1251 678 1527; Mul 1296 831 1102;
  Add 1251 1251 1296; Mul 1296 673 1497; Mul 1053 842 1536; Add 1296 1296 1053; Mul 1053 799 1401;
  Mul 1468 840 1215; Add 1053 1053 1468; Add 1296 1296 1053; Add 1251 1251 1296; Mul 1296 602 1691;
  Mul 1053 845 1669; Add 1296 1296 1053; Mul 1053 670 1223; Mul 1468 844 1255; Add 1053 1053 1468;
  Mul 1468 671 1595; Mul 1320 841 1156; Add 1468 1468 1320; Sub 1053 1053 1468; Add 1296 1296 1053;
  Add 1251 1251 1296; Mul 1296 785 1570; Mul 1158 310 1158; Add 1296 1296 1158; Mul 1158 306 1664;
  Mul 1648 327 1648; Add 1158 1158 1648; Add 1406 1406 1588; Add 1158 1158 1406; Add 1296 1296 1158;
  Mul 1158 676 1296; Mul 1406 853 1481; Add 1158 1158 1406; Mul 1406 680 1695; Mul 1588 847 1195;
  Add 1406 1406 1588; Sub 1158 1158 1406; Mul 1406 674 1509; Mul 1588 843 1694; Sub 1406 1406 1588;
  Sub 1158 1158 1406; Sub 1444 1444 1279; Add 1158 1158 1444; Add 1251 1251 1158; Mul 1251 2 1251;
  Mul 1158 846 1599; Add 1251 1251 1158; Add 1190 1190 1251; Mul 1527 717 1527].
Definition casadi_f0_920 : list instruction := [
  Mul 1251 831 1243; Add 1527 1527 1251; Mul 1401 787 1401; Mul 1251 840 1130; Add 1401 1401 1251;
  Mul 1497 713 1497; Mul 1251 842 1386; Add 1497 1497 1251; Sub 1401 1401 1497; Add 1527 1527 1401;
  Mul 1595 677 1595; Mul 1401 841 1593; Add 1595 1595 1401; Mul 1223 712 1223; Mul 1401 844 1096;
  Add 1223 1223 1401; Sub 1595 1595 1223; Mul 1691 706 1691; Mul 1223 845 1162; Add 1691 1691 1223;
  Sub 1595 1595 1691; Add 1527 1527 1595; Mul 1509 714 1509; Mul 1595 843 1491; Add 1509 1509 1595;
  Mul 1695 718 1695; Mul 1595 847 1361; Add 1695 1695 1595; Mul 1296 716 1296; Mul 1595 853 1384;
  Add 1296 1296 1595; Sub 1695 1695 1296; Add 1509 1509 1695; Add 1509 1509 1410; Add 1527 1527 1509;
  Mul 1527 3 1527; Mul 1509 854 1076; Add 1527 1527 1509; Add 1190 1190 1527; Mul 1527 811 1517;
  Mul 1559 725 1559; Add 1527 1527 1559; Mul 1559 813 1415; Mul 1176 731 1176; Add 1559 1559 1176;
  Mul 1176 802 1578; Mul 1620 727 1620; Add 1176 1176 1620; Add 1559 1559 1176; Add 1527 1527 1559;
  Mul 1559 807 1570; Mul 1333 310 1333; Add 1559 1559 1333; Mul 1333 690 1664; Mul 1463 327 1463;
  Add 1333 1333 1463; Mul 1463 720 1217; Mul 1308 318 1308; Add 1463 1463 1308; Add 1333 1333 1463;
  Add 1559 1559 1333; Sub 1527 1527 1559; Mul 1527 4 1527; Mul 1559 851 1170; Add 1527 1527 1559;
  Add 1190 1190 1527; Mul 1527 820 1517; Mul 1559 725 1563; Add 1527 1527 1559; Mul 1559 822 1415;
  Mul 1333 731 1540; Add 1559 1559 1333; Mul 1333 788 1578; Mul 1463 727 1181; Add 1333 1333 1463;
  Add 1559 1559 1333; Add 1527 1527 1559; Mul 1559 817 1570; Mul 1333 310 1062; Add 1559 1559 1333;
  Mul 1333 814 1664; Mul 1463 327 1552; Add 1333 1333 1463; Mul 1463 732 1217; Mul 1308 318 1270;
  Add 1463 1463 1308; Add 1333 1333 1463; Add 1559 1559 1333; Sub 1527 1527 1559; Mul 1527 5 1527;
  Mul 1559 852 1344; Add 1527 1527 1559; Add 1190 1190 1527; Sub 1642 1642 1190; Mul 1190 761 1642;
  Add 1282 1282 1190; Add 1201 1201 1282; Div 1282 1115 92; Mul 1190 1619 1352; Sub 1282 1282 1190;
  Mul 1190 833 1282; Mul 1527 645 1219; Mul 1346 736 1346; Add 1527 1527 1346; Mul 1346 666 1147;
  Mul 1499 741 1499; Add 1346 1346 1499; Add 1114 1114 1288; Add 1346 1346 1114; Add 1527 1527 1346;
  Mul 1346 593 1224; Mul 1696 358 1696; Add 1346 1346 1696; Mul 1696 36 1584; Mul 1185 372 1185;
  Add 1696 1696 1185; Add 1225 1225 1532; Add 1696 1696 1225; Add 1346 1346 1696; Sub 1527 1527 1346;
  Mul 1346 0 1527; Mul 1544 849 1544; Add 1346 1346 1544; Mul 1544 372 1036; Mul 1696 438 1584;
  Add 1544 1544 1696; Mul 1696 369 1196; Mul 1225 434 1558; Add 1696 1696 1225; Sub 1544 1544 1696;
  Sub 1544 1219 1544; Mul 1544 430 1544; Mul 1696 545 1544; Mul 1656 856 1656; Add 1696 1696 1656;
  Mul 1656 358 1196; Mul 1225 434 1224; Add 1656 1656 1225; Mul 1225 372 1667; Mul 1532 445 1584;
  Add 1225 1225 1532; Sub 1656 1656 1225; Sub 1656 1375 1656; Mul 1656 430 1656; Mul 1225 504 1656;
  Mul 1601 858 1601; Add 1225 1225 1601; Mul 1601 369 1667; Mul 1532 445 1558].
Definition casadi_f0_921 : list instruction := [
  Add 1601 1601 1532; Mul 1532 358 1036; Mul 1185 438 1224; Add 1532 1532 1185; Sub 1601 1601 1532;
  Sub 1601 1147 1601; Mul 1601 430 1601; Mul 1532 541 1601; Mul 1179 860 1179; Add 1532 1532 1179;
  Sub 1225 1225 1532; Add 1696 1696 1225; Mul 1225 860 1667; Mul 1532 445 1601; Add 1225 1225 1532;
  Mul 1532 856 1196; Mul 1179 434 1544; Add 1532 1532 1179; Sub 1225 1225 1532; Mul 1532 358 1407;
  Mul 1179 443 1224; Add 1532 1532 1179; Mul 1179 372 1226; Mul 1185 426 1584; Add 1179 1179 1185;
  Add 1532 1532 1179; Mul 1030 369 1030; Mul 1179 478 1558; Add 1030 1030 1179; Add 1532 1532 1030;
  Sub 1225 1225 1532; Mul 1532 508 1225; Mul 1520 859 1520; Add 1532 1532 1520; Mul 1520 856 1036;
  Mul 1030 438 1544; Add 1520 1520 1030; Mul 1667 858 1667; Mul 1030 445 1656; Add 1667 1667 1030;
  Sub 1520 1520 1667; Mul 1667 358 1139; Mul 1030 609 1224; Add 1667 1667 1030; Mul 1425 372 1425;
  Mul 1030 604 1584; Add 1425 1425 1030; Add 1667 1667 1425; Mul 1226 369 1226; Mul 1425 426 1558;
  Add 1226 1226 1425; Add 1667 1667 1226; Sub 1520 1520 1667; Mul 1667 536 1520; Mul 1649 862 1649;
  Add 1667 1667 1649; Sub 1532 1532 1667; Mul 1196 858 1196; Mul 1667 434 1656; Add 1196 1196 1667;
  Mul 1036 860 1036; Mul 1667 438 1601; Add 1036 1036 1667; Sub 1196 1196 1036; Mul 1036 13 1224;
  Mul 1074 358 1074; Sub 1036 1036 1074; Mul 1139 372 1139; Mul 1074 609 1584; Add 1139 1139 1074;
  Add 1036 1036 1139; Mul 1407 369 1407; Mul 1139 443 1558; Add 1407 1407 1139; Add 1036 1036 1407;
  Sub 1196 1196 1036; Mul 1036 526 1196; Mul 1681 863 1681; Add 1036 1036 1681; Sub 1532 1532 1036;
  Add 1696 1696 1532; Add 1283 1283 1248; Mul 1248 803 1584; Mul 1090 372 1090; Add 1248 1248 1090;
  Mul 1090 648 1558; Mul 1419 369 1419; Add 1090 1090 1419; Add 1248 1248 1090; Add 1283 1283 1248;
  Mul 1248 540 1283; Mul 1151 861 1151; Sub 1248 1248 1151; Mul 1151 394 1224; Mul 1668 358 1668;
  Add 1151 1151 1668; Add 1549 1549 1492; Mul 1492 669 1558; Mul 1376 369 1376; Add 1492 1492 1376;
  Add 1549 1549 1492; Add 1151 1151 1549; Mul 1549 544 1151; Mul 1136 865 1136; Add 1549 1549 1136;
  Add 1248 1248 1549; Mul 1549 801 1219; Mul 1673 736 1673; Add 1549 1549 1673; Add 1111 1111 1234;
  Mul 1234 355 1375; Mul 1172 738 1172; Add 1234 1234 1172; Add 1111 1111 1234; Add 1549 1549 1111;
  Mul 1111 359 1224; Mul 1091 358 1091; Add 1111 1111 1091; Add 1146 1146 1465; Mul 1465 608 1558;
  Mul 1706 369 1706; Add 1465 1465 1706; Add 1146 1146 1465; Add 1111 1111 1146; Sub 1549 1549 1111;
  Mul 1111 216 1549; Mul 1385 866 1385; Sub 1111 1111 1385; Add 1654 1654 1319; Mul 1319 457 1147;
  Mul 1589 741 1589; Add 1319 1319 1589; Mul 1589 234 1375; Mul 1230 738 1230; Add 1589 1589 1230;
  Add 1319 1319 1589; Add 1654 1654 1319; Add 1692 1692 1194; Mul 1194 352 1584; Mul 1580 372 1580;
  Add 1194 1194 1580; Mul 1580 622 1558; Mul 1662 369 1662; Add 1580 1580 1662; Add 1194 1194 1580;
  Add 1692 1692 1194; Sub 1654 1654 1692; Mul 1692 215 1654; Mul 1698 868 1698].
Definition casadi_f0_922 : list instruction := [
  Add 1692 1692 1698; Sub 1698 1111 1692; Add 1248 1248 1698; Add 1696 1696 1248; Mul 1696 1 1696;
  Mul 1028 857 1028; Add 1696 1696 1028; Add 1346 1346 1696; Mul 1696 678 1544; Mul 1102 856 1102;
  Add 1696 1696 1102; Mul 1102 673 1601; Mul 1536 860 1536; Add 1102 1102 1536; Mul 1536 799 1656;
  Mul 1215 858 1215; Add 1536 1536 1215; Add 1102 1102 1536; Add 1696 1696 1102; Mul 1102 602 1196;
  Mul 1669 863 1669; Add 1102 1102 1669; Mul 1669 670 1520; Mul 1255 862 1255; Add 1669 1669 1255;
  Mul 1255 671 1225; Mul 1156 859 1156; Add 1255 1255 1156; Sub 1669 1669 1255; Add 1102 1102 1669;
  Add 1696 1696 1102; Mul 1102 245 1224; Mul 1157 358 1157; Add 1102 1102 1157; Mul 1157 356 1584;
  Mul 1105 372 1105; Add 1157 1157 1105; Add 1372 1372 1089; Add 1157 1157 1372; Add 1102 1102 1157;
  Mul 1157 676 1102; Mul 1481 871 1481; Add 1157 1157 1481; Mul 1481 680 1151; Mul 1195 865 1195;
  Add 1481 1481 1195; Sub 1157 1157 1481; Mul 1481 674 1283; Mul 1694 861 1694; Sub 1481 1481 1694;
  Sub 1157 1157 1481; Sub 1692 1692 1111; Add 1157 1157 1692; Add 1696 1696 1157; Mul 1696 2 1696;
  Mul 1599 864 1599; Add 1696 1696 1599; Add 1346 1346 1696; Mul 1696 717 1544; Mul 1243 856 1243;
  Add 1696 1696 1243; Mul 1243 787 1656; Mul 1130 858 1130; Add 1243 1243 1130; Mul 1130 713 1601;
  Mul 1386 860 1386; Add 1130 1130 1386; Sub 1243 1243 1130; Add 1696 1696 1243; Mul 1243 677 1225;
  Mul 1593 859 1593; Add 1243 1243 1593; Mul 1593 712 1520; Mul 1096 862 1096; Add 1593 1593 1096;
  Sub 1243 1243 1593; Mul 1593 706 1196; Mul 1162 863 1162; Add 1593 1593 1162; Sub 1243 1243 1593;
  Add 1696 1696 1243; Mul 1243 714 1283; Mul 1491 861 1491; Add 1243 1243 1491; Mul 1491 718 1151;
  Mul 1361 865 1361; Add 1491 1491 1361; Mul 1361 716 1102; Mul 1384 871 1384; Add 1361 1361 1384;
  Sub 1491 1491 1361; Add 1243 1243 1491; Add 1243 1243 1698; Add 1696 1696 1243; Mul 1696 3 1696;
  Mul 1076 872 1076; Add 1696 1696 1076; Add 1346 1346 1696; Mul 1544 729 1544; Mul 1103 856 1103;
  Add 1544 1544 1103; Mul 1601 724 1601; Mul 1675 860 1675; Add 1601 1601 1675; Mul 1656 688 1656;
  Mul 1442 858 1442; Add 1656 1656 1442; Add 1601 1601 1656; Add 1544 1544 1601; Mul 1196 715 1196;
  Mul 1571 863 1571; Add 1196 1196 1571; Mul 1520 721 1520; Mul 1688 862 1688; Add 1520 1520 1688;
  Mul 1225 722 1225; Mul 1443 859 1443; Add 1225 1225 1443; Add 1520 1520 1225; Add 1196 1196 1520;
  Add 1544 1544 1196; Mul 1283 725 1283; Mul 1517 861 1517; Add 1283 1283 1517; Mul 1151 731 1151;
  Mul 1415 865 1415; Add 1151 1151 1415; Mul 1102 727 1102; Mul 1578 871 1578; Add 1102 1102 1578;
  Add 1151 1151 1102; Add 1283 1283 1151; Mul 1654 310 1654; Mul 1570 868 1570; Add 1654 1654 1570;
  Mul 1549 327 1549; Mul 1664 866 1664; Add 1549 1549 1664; Mul 1527 318 1527; Mul 1217 849 1217;
  Add 1527 1527 1217; Add 1549 1549 1527; Add 1654 1654 1549; Add 1283 1283 1654; Sub 1544 1544 1283;
  Mul 1544 4 1544; Mul 1170 869 1170; Add 1544 1544 1170; Add 1346 1346 1544].
Definition casadi_f0_923 : list instruction := [
  Mul 1219 820 1219; Mul 1563 736 1563; Add 1219 1219 1563; Mul 1147 822 1147; Mul 1540 741 1540;
  Add 1147 1147 1540; Mul 1375 788 1375; Mul 1181 738 1181; Add 1375 1375 1181; Add 1147 1147 1375;
  Add 1219 1219 1147; Mul 1224 817 1224; Mul 1062 358 1062; Add 1224 1224 1062; Mul 1584 814 1584;
  Mul 1552 372 1552; Add 1584 1584 1552; Mul 1558 732 1558; Mul 1270 369 1270; Add 1558 1558 1270;
  Add 1584 1584 1558; Add 1224 1224 1584; Sub 1219 1219 1224; Mul 1219 5 1219; Mul 1344 870 1344;
  Add 1219 1219 1344; Add 1346 1346 1219; Sub 1501 1501 1346; Mul 1346 754 1501; Add 1190 1190 1346;
  Add 1201 1201 1190; Mul 1190 210 1115; Mul 1346 200 1356; Add 1190 1190 1346; Mul 1635 19 1635;
  Mul 1346 196 1222; Sub 1635 1635 1346; Mul 1346 189 1470; Mul 1476 35 1476; Sub 1346 1346 1476;
  Sub 1635 1635 1346; Mul 1393 55 1393; Mul 1609 62 1609; Add 1393 1393 1609; Add 1635 1635 1393;
  Mul 1395 86 1395; Mul 1412 91 1412; Add 1395 1395 1412; Add 1395 1635 1395; Mul 1150 102 1150;
  Sub 1150 1395 1150; Mul 1412 777 1150; Mul 1393 209 1165; Add 1412 1412 1393; Add 1190 1190 1412;
  Mul 1412 778 1395; Mul 1393 867 1466; Add 1412 1412 1393; Add 1190 1190 1412; Mul 1412 769 1635;
  Mul 1393 855 1374; Add 1412 1412 1393; Add 1190 1190 1412; Mul 1412 761 1373; Mul 1393 201 1660;
  Add 1412 1412 1393; Sub 1190 1190 1412; Mul 1412 873 1282; Add 1190 1190 1412; Mul 1412 1006 1190;
  Mul 1393 210 1190; Mul 1609 756 1356; Add 1393 1393 1609; Sub 1115 1115 1393; Mul 1393 881 1115;
  Mul 1609 210 1221; Mul 1346 143 1356; Add 1609 1609 1346; Sub 1171 1171 1464; Sub 1514 1514 1205;
  Mul 1514 37 1514; Add 1171 1171 1514; Sub 1519 1519 1298; Mul 1519 80 1519; Add 1519 1171 1519;
  Sub 1408 1408 1705; Mul 1408 100 1408; Add 1408 1519 1408; Mul 1452 1064 1452; Mul 1052 1061 1052;
  Add 1452 1452 1052; Mul 1452 141 1452; Add 1408 1408 1452; Mul 1452 777 1408; Mul 1052 876 1165;
  Add 1452 1452 1052; Add 1609 1609 1452; Mul 1577 151 1577; Mul 1701 103 1701; Add 1577 1577 1701;
  Mul 1106 148 1106; Mul 1387 105 1387; Add 1106 1106 1387; Sub 1577 1577 1106; Sub 1577 1577 1519;
  Mul 1329 102 1329; Sub 1329 1577 1329; Mul 1519 778 1329; Mul 1106 153 1466; Add 1519 1519 1106;
  Sub 1609 1609 1519; Mul 1307 1057 1307; Mul 1418 1065 1418; Sub 1307 1307 1418; Mul 1307 156 1307;
  Add 1171 1171 1307; Mul 1280 86 1280; Mul 1120 91 1120; Sub 1280 1280 1120; Add 1280 1171 1280;
  Mul 1266 102 1266; Sub 1266 1280 1266; Mul 1120 769 1266; Mul 1307 171 1374; Add 1120 1120 1307;
  Add 1609 1609 1120; Mul 1470 180 1470; Mul 1202 35 1202; Add 1470 1470 1202; Mul 1265 19 1265;
  Mul 1222 182 1222; Sub 1265 1265 1222; Sub 1470 1470 1265; Mul 1330 55 1330; Add 1470 1470 1330;
  Mul 1600 86 1600; Mul 1182 91 1182; Add 1600 1600 1182; Add 1600 1470 1600; Mul 1555 102 1555;
  Sub 1555 1600 1555; Mul 1182 761 1555; Mul 1330 188 1660; Add 1182 1182 1330; Add 1609 1609 1182;
  Mul 1182 754 1150; Mul 1330 209 1282; Add 1182 1182 1330; Add 1609 1609 1182].
Definition casadi_f0_924 : list instruction := [
  Mul 1182 210 1609; Mul 1330 875 1356; Add 1182 1182 1330; Sub 1221 1221 1182; Div 1182 1221 65;
  Mul 1221 89 1221; Mul 1330 777 1609; Mul 1265 875 1165; Add 1330 1330 1265; Sub 1408 1408 1330;
  Mul 1330 58 1408; Add 1221 1221 1330; Mul 1330 778 1609; Mul 1265 875 1466; Add 1330 1330 1265;
  Add 1330 1329 1330; Mul 1265 45 1330; Add 1221 1221 1265; Mul 1265 769 1609; Mul 1222 875 1374;
  Add 1265 1265 1222; Sub 1265 1266 1265; Mul 1222 22 1265; Add 1221 1221 1222; Mul 1222 761 1609;
  Mul 1202 875 1660; Add 1222 1222 1202; Sub 1222 1555 1222; Mul 1202 879 1222; Add 1221 1221 1202;
  Mul 1202 754 1609; Mul 1120 875 1282; Add 1202 1202 1120; Sub 1202 1150 1202; Mul 1120 880 1202;
  Add 1221 1221 1120; Div 1221 1221 1045; Mul 1120 1078 1221; Sub 1182 1182 1120; Mul 1120 874 1182;
  Add 1393 1393 1120; Mul 1120 777 1190; Mul 1307 756 1165; Add 1120 1120 1307; Sub 1150 1150 1120;
  Mul 1120 884 1150; Div 1408 1408 65; Mul 1307 1029 1221; Sub 1408 1408 1307; Mul 1307 883 1408;
  Add 1120 1120 1307; Add 1393 1393 1120; Mul 1120 778 1190; Mul 1307 756 1466; Add 1120 1120 1307;
  Sub 1120 1120 1395; Mul 1307 886 1120; Div 1330 1330 65; Mul 1418 1063 1221; Sub 1330 1330 1418;
  Mul 1418 885 1330; Add 1307 1307 1418; Add 1393 1393 1307; Mul 1307 769 1190; Mul 1418 756 1374;
  Add 1307 1307 1418; Sub 1307 1635 1307; Mul 1418 888 1307; Div 1265 1265 65; Mul 1519 1040 1221;
  Sub 1265 1265 1519; Mul 1519 887 1265; Add 1418 1418 1519; Add 1393 1393 1418; Mul 1418 761 1190;
  Mul 1519 756 1660; Add 1418 1418 1519; Add 1418 1373 1418; Mul 1519 890 1418; Div 1222 1222 65;
  Mul 1106 1027 1221; Sub 1222 1222 1106; Mul 1106 889 1222; Add 1519 1519 1106; Sub 1393 1393 1519;
  Div 1202 1202 65; Mul 1519 1046 1221; Sub 1202 1202 1519; Mul 1519 891 1202; Mul 1190 754 1190;
  Mul 1106 756 1282; Add 1190 1190 1106; Mul 1106 892 1190; Sub 1519 1519 1106; Add 1393 1393 1519;
  Mul 1519 881 1393; Mul 1106 882 1182; Add 1519 1519 1106; Sub 1115 1115 1519; Mul 1519 884 1393;
  Mul 1106 882 1408; Add 1519 1519 1106; Sub 1150 1150 1519; Mul 1519 910 1150; Mul 1106 777 1329;
  Mul 1387 153 1165; Add 1106 1106 1387; Mul 1387 210 1025; Mul 1701 154 1356; Add 1387 1387 1701;
  Sub 1106 1106 1387; Mul 1387 778 1577; Mul 1701 106 1466; Add 1387 1387 1701; Add 1106 1106 1387;
  Mul 1387 769 1280; Mul 1701 877 1374; Add 1387 1387 1701; Sub 1106 1106 1387; Mul 1387 761 1600;
  Mul 1701 94 1660; Add 1387 1387 1701; Sub 1106 1106 1387; Mul 1387 754 1395; Mul 1701 867 1282;
  Add 1387 1387 1701; Sub 1106 1106 1387; Mul 1387 777 1106; Mul 1701 895 1165; Add 1387 1387 1701;
  Sub 1329 1329 1387; Mul 1387 884 1329; Mul 1701 896 1408; Add 1387 1387 1701; Mul 1701 210 1106;
  Mul 1452 895 1356; Add 1701 1701 1452; Add 1025 1025 1701; Mul 1701 881 1025; Mul 1452 898 1182;
  Add 1701 1701 1452; Sub 1387 1387 1701; Mul 1701 778 1106; Mul 1452 895 1466; Add 1701 1701 1452;
  Sub 1701 1701 1577; Mul 1577 886 1701; Mul 1452 899 1330; Add 1577 1577 1452].
Definition casadi_f0_925 : list instruction := [
  Add 1387 1387 1577; Mul 1577 769 1106; Mul 1452 895 1374; Add 1577 1577 1452; Add 1577 1280 1577;
  Mul 1452 888 1577; Mul 1052 900 1265; Add 1452 1452 1052; Sub 1387 1387 1452; Mul 1452 761 1106;
  Mul 1052 895 1660; Add 1452 1452 1052; Add 1452 1600 1452; Mul 1052 890 1452; Mul 1705 901 1222;
  Add 1052 1052 1705; Sub 1387 1387 1052; Mul 1052 754 1106; Mul 1705 895 1282; Add 1052 1052 1705;
  Add 1395 1395 1052; Mul 1052 892 1395; Mul 1705 902 1202; Add 1052 1052 1705; Sub 1387 1387 1052;
  Mul 1052 884 1387; Mul 1705 897 1408; Add 1052 1052 1705; Sub 1329 1329 1052; Div 1052 1329 905;
  Mul 1705 881 1387; Mul 1298 897 1182; Add 1705 1705 1298; Add 1025 1025 1705; Mul 1705 904 1025;
  Mul 1329 903 1329; Add 1705 1705 1329; Mul 1329 886 1387; Mul 1298 897 1330; Add 1329 1329 1298;
  Sub 1701 1701 1329; Mul 1329 906 1701; Add 1705 1705 1329; Mul 1329 888 1387; Mul 1298 897 1265;
  Add 1329 1329 1298; Add 1577 1577 1329; Mul 1329 907 1577; Add 1705 1705 1329; Mul 1329 890 1387;
  Mul 1298 897 1222; Add 1329 1329 1298; Add 1452 1452 1329; Mul 1329 908 1452; Add 1705 1705 1329;
  Mul 1329 892 1387; Mul 1298 897 1202; Add 1329 1329 1298; Add 1395 1395 1329; Mul 1329 909 1395;
  Add 1705 1705 1329; Div 1705 1705 1067; Mul 1329 1214 1705; Sub 1052 1052 1329; Mul 1329 894 1052;
  Add 1519 1519 1329; Mul 1329 912 1115; Div 1025 1025 905; Mul 1298 1614 1705; Sub 1025 1025 1298;
  Mul 1298 893 1025; Add 1329 1329 1298; Sub 1519 1519 1329; Mul 1329 886 1393; Mul 1298 882 1330;
  Add 1329 1329 1298; Sub 1120 1120 1329; Mul 1329 914 1120; Div 1701 1701 905; Mul 1298 1273 1705;
  Sub 1701 1701 1298; Mul 1298 913 1701; Add 1329 1329 1298; Add 1519 1519 1329; Mul 1329 888 1393;
  Mul 1298 882 1265; Add 1329 1329 1298; Sub 1307 1307 1329; Mul 1329 916 1307; Div 1577 1577 905;
  Mul 1298 1260 1705; Sub 1577 1577 1298; Mul 1298 915 1577; Add 1329 1329 1298; Sub 1519 1519 1329;
  Mul 1329 890 1393; Mul 1298 882 1222; Add 1329 1329 1298; Add 1418 1418 1329; Mul 1329 918 1418;
  Div 1452 1452 905; Mul 1298 1249 1705; Sub 1452 1452 1298; Mul 1298 917 1452; Add 1329 1329 1298;
  Add 1519 1519 1329; Div 1395 1395 905; Mul 1329 1569 1705; Sub 1395 1395 1329; Mul 1329 919 1395;
  Mul 1298 892 1393; Mul 1514 882 1202; Add 1298 1298 1514; Add 1190 1190 1298; Mul 1298 920 1190;
  Sub 1329 1329 1298; Sub 1519 1519 1329; Mul 1329 912 1519; Mul 1298 911 1025; Add 1329 1329 1298;
  Add 1115 1115 1329; Mul 1329 944 1115; Mul 1298 210 1269; Mul 1514 168 1356; Add 1298 1298 1514;
  Mul 1514 777 1266; Mul 1205 171 1165; Add 1514 1514 1205; Add 1298 1298 1514; Mul 1514 778 1280;
  Mul 1205 877 1466; Add 1514 1514 1205; Add 1298 1298 1514; Mul 1514 769 1171; Mul 1205 878 1374;
  Add 1514 1514 1205; Add 1298 1298 1514; Mul 1514 761 1470; Mul 1205 98 1660; Add 1514 1514 1205;
  Add 1298 1298 1514; Mul 1514 754 1635; Mul 1205 855 1282; Add 1514 1514 1205; Add 1298 1298 1514;
  Mul 1514 210 1298; Mul 1205 922 1356; Add 1514 1514 1205; Sub 1269 1269 1514].
Definition casadi_f0_926 : list instruction := [
  Mul 1514 881 1269; Mul 1205 923 1182; Add 1514 1514 1205; Mul 1205 777 1298; Mul 1464 922 1165;
  Add 1205 1205 1464; Sub 1266 1266 1205; Mul 1205 884 1266; Mul 1464 925 1408; Add 1205 1205 1464;
  Add 1514 1514 1205; Mul 1205 778 1298; Mul 1464 922 1466; Add 1205 1205 1464; Sub 1205 1205 1280;
  Mul 1280 886 1205; Mul 1464 926 1330; Add 1280 1280 1464; Add 1514 1514 1280; Mul 1280 769 1298;
  Mul 1464 922 1374; Add 1280 1280 1464; Sub 1171 1171 1280; Mul 1280 888 1171; Mul 1464 927 1265;
  Add 1280 1280 1464; Add 1514 1514 1280; Mul 1280 761 1298; Mul 1464 922 1660; Add 1280 1280 1464;
  Sub 1280 1470 1280; Mul 1464 890 1280; Mul 1346 928 1222; Add 1464 1464 1346; Add 1514 1514 1464;
  Mul 1464 754 1298; Mul 1346 922 1282; Add 1464 1464 1346; Sub 1635 1635 1464; Mul 1464 892 1635;
  Mul 1346 929 1202; Add 1464 1464 1346; Add 1514 1514 1464; Mul 1464 881 1514; Mul 1346 924 1182;
  Add 1464 1464 1346; Sub 1269 1269 1464; Mul 1464 884 1514; Mul 1346 924 1408; Add 1464 1464 1346;
  Sub 1266 1266 1464; Mul 1464 910 1266; Mul 1346 931 1052; Add 1464 1464 1346; Mul 1346 912 1269;
  Mul 1476 930 1025; Add 1346 1346 1476; Sub 1464 1464 1346; Mul 1346 886 1514; Mul 1476 924 1330;
  Add 1346 1346 1476; Sub 1205 1205 1346; Mul 1346 914 1205; Mul 1476 933 1701; Add 1346 1346 1476;
  Add 1464 1464 1346; Mul 1346 888 1514; Mul 1476 924 1265; Add 1346 1346 1476; Sub 1171 1171 1346;
  Mul 1346 916 1171; Mul 1476 934 1577; Add 1346 1346 1476; Sub 1464 1464 1346; Mul 1346 890 1514;
  Mul 1476 924 1222; Add 1346 1346 1476; Sub 1280 1280 1346; Mul 1346 918 1280; Mul 1476 935 1452;
  Add 1346 1346 1476; Sub 1464 1464 1346; Mul 1346 892 1514; Mul 1476 924 1202; Add 1346 1346 1476;
  Sub 1635 1635 1346; Mul 1346 920 1635; Mul 1476 936 1395; Add 1346 1346 1476; Sub 1464 1464 1346;
  Mul 1346 912 1464; Mul 1476 932 1025; Add 1346 1346 1476; Add 1269 1269 1346; Div 1346 1269 938;
  Mul 1269 937 1269; Mul 1476 910 1464; Mul 1219 932 1052; Add 1476 1476 1219; Sub 1266 1266 1476;
  Mul 1476 939 1266; Add 1269 1269 1476; Mul 1476 914 1464; Mul 1219 932 1701; Add 1476 1476 1219;
  Sub 1205 1205 1476; Mul 1476 940 1205; Add 1269 1269 1476; Mul 1476 916 1464; Mul 1219 932 1577;
  Add 1476 1476 1219; Add 1171 1171 1476; Mul 1476 941 1171; Add 1269 1269 1476; Mul 1476 918 1464;
  Mul 1219 932 1452; Add 1476 1476 1219; Add 1280 1280 1476; Mul 1476 942 1280; Add 1269 1269 1476;
  Mul 1476 920 1464; Mul 1219 932 1395; Add 1476 1476 1219; Add 1635 1635 1476; Mul 1476 943 1635;
  Add 1269 1269 1476; Div 1269 1269 1615; Mul 1476 1446 1269; Sub 1346 1346 1476; Mul 1476 921 1346;
  Add 1329 1329 1476; Mul 1476 910 1519; Mul 1219 911 1052; Add 1476 1476 1219; Sub 1150 1150 1476;
  Mul 1476 947 1150; Div 1266 1266 938; Mul 1219 1184 1269; Sub 1266 1266 1219; Mul 1219 946 1266;
  Add 1476 1476 1219; Add 1329 1329 1476; Mul 1476 914 1519; Mul 1219 911 1701; Add 1476 1476 1219;
  Sub 1120 1120 1476; Mul 1476 949 1120; Div 1205 1205 938; Mul 1219 1160 1269].
Definition casadi_f0_927 : list instruction := [
  Sub 1205 1205 1219; Mul 1219 948 1205; Add 1476 1476 1219; Add 1329 1329 1476; Mul 1476 916 1519;
  Mul 1219 911 1577; Add 1476 1476 1219; Add 1307 1307 1476; Mul 1476 951 1307; Div 1171 1171 938;
  Mul 1219 1328 1269; Sub 1171 1171 1219; Mul 1219 950 1171; Add 1476 1476 1219; Add 1329 1329 1476;
  Mul 1476 918 1519; Mul 1219 911 1452; Add 1476 1476 1219; Sub 1476 1476 1418; Mul 1418 953 1476;
  Div 1280 1280 938; Mul 1219 1155 1269; Sub 1280 1280 1219; Mul 1219 952 1280; Add 1418 1418 1219;
  Add 1329 1329 1418; Mul 1418 920 1519; Mul 1219 911 1395; Add 1418 1418 1219; Sub 1418 1418 1190;
  Mul 1190 955 1418; Div 1635 1635 938; Mul 1219 1220 1269; Sub 1635 1635 1219; Mul 1219 954 1635;
  Add 1190 1190 1219; Add 1329 1329 1190; Mul 1190 944 1329; Mul 1219 945 1346; Add 1190 1190 1219;
  Sub 1115 1115 1190; Mul 1190 986 1115; Mul 1219 210 1128; Mul 1344 175 1356; Add 1219 1219 1344;
  Mul 1344 777 1555; Mul 1224 188 1165; Add 1344 1344 1224; Add 1219 1219 1344; Mul 1344 778 1600;
  Mul 1224 94 1466; Add 1344 1344 1224; Add 1219 1219 1344; Mul 1344 769 1470; Mul 1224 98 1374;
  Add 1344 1344 1224; Add 1219 1219 1344; Mul 1344 761 1613; Mul 1224 172 1660; Add 1344 1344 1224;
  Sub 1219 1219 1344; Mul 1344 754 1373; Mul 1224 201 1282; Add 1344 1344 1224; Sub 1219 1219 1344;
  Mul 1344 210 1219; Mul 1356 957 1356; Add 1344 1344 1356; Sub 1128 1128 1344; Mul 1344 881 1128;
  Mul 1356 958 1182; Add 1344 1344 1356; Mul 1356 777 1219; Mul 1165 957 1165; Add 1356 1356 1165;
  Sub 1555 1555 1356; Mul 1356 884 1555; Mul 1165 960 1408; Add 1356 1356 1165; Add 1344 1344 1356;
  Mul 1356 778 1219; Mul 1466 957 1466; Add 1356 1356 1466; Sub 1356 1356 1600; Mul 1600 886 1356;
  Mul 1466 961 1330; Add 1600 1600 1466; Add 1344 1344 1600; Mul 1600 769 1219; Mul 1374 957 1374;
  Add 1600 1600 1374; Sub 1470 1470 1600; Mul 1600 888 1470; Mul 1374 962 1265; Add 1600 1600 1374;
  Add 1344 1344 1600; Mul 1600 761 1219; Mul 1660 957 1660; Add 1600 1600 1660; Add 1613 1613 1600;
  Mul 1600 890 1613; Mul 1660 963 1222; Add 1600 1600 1660; Sub 1344 1344 1600; Mul 1600 754 1219;
  Mul 1282 957 1282; Add 1600 1600 1282; Add 1373 1373 1600; Mul 1600 892 1373; Mul 1282 964 1202;
  Add 1600 1600 1282; Sub 1344 1344 1600; Mul 1600 881 1344; Mul 1282 959 1182; Add 1600 1600 1282;
  Sub 1128 1128 1600; Mul 1600 884 1344; Mul 1282 959 1408; Add 1600 1600 1282; Sub 1555 1555 1600;
  Mul 1600 910 1555; Mul 1282 966 1052; Add 1600 1600 1282; Mul 1282 912 1128; Mul 1660 965 1025;
  Add 1282 1282 1660; Sub 1600 1600 1282; Mul 1282 886 1344; Mul 1660 959 1330; Add 1282 1282 1660;
  Sub 1356 1356 1282; Mul 1282 914 1356; Mul 1660 968 1701; Add 1282 1282 1660; Add 1600 1600 1282;
  Mul 1282 888 1344; Mul 1660 959 1265; Add 1282 1282 1660; Sub 1470 1470 1282; Mul 1282 916 1470;
  Mul 1660 969 1577; Add 1282 1282 1660; Sub 1600 1600 1282; Mul 1282 890 1344; Mul 1660 959 1222;
  Add 1282 1282 1660; Add 1613 1613 1282; Mul 1282 918 1613; Mul 1660 970 1452].
Definition casadi_f0_928 : list instruction := [
  Add 1282 1282 1660; Add 1600 1600 1282; Mul 1282 892 1344; Mul 1660 959 1202; Add 1282 1282 1660;
  Add 1373 1373 1282; Mul 1282 920 1373; Mul 1660 971 1395; Add 1282 1282 1660; Add 1600 1600 1282;
  Mul 1282 912 1600; Mul 1660 967 1025; Add 1282 1282 1660; Add 1128 1128 1282; Mul 1282 944 1128;
  Mul 1660 972 1346; Add 1282 1282 1660; Mul 1660 910 1600; Mul 1374 967 1052; Add 1660 1660 1374;
  Sub 1555 1555 1660; Mul 1660 947 1555; Mul 1374 974 1266; Add 1660 1660 1374; Add 1282 1282 1660;
  Mul 1660 914 1600; Mul 1374 967 1701; Add 1660 1660 1374; Sub 1356 1356 1660; Mul 1660 949 1356;
  Mul 1374 975 1205; Add 1660 1660 1374; Add 1282 1282 1660; Mul 1660 916 1600; Mul 1374 967 1577;
  Add 1660 1660 1374; Add 1470 1470 1660; Mul 1660 951 1470; Mul 1374 976 1171; Add 1660 1660 1374;
  Add 1282 1282 1660; Mul 1660 918 1600; Mul 1374 967 1452; Add 1660 1660 1374; Sub 1660 1660 1613;
  Mul 1613 953 1660; Mul 1374 977 1280; Add 1613 1613 1374; Add 1282 1282 1613; Mul 1613 920 1600;
  Mul 1374 967 1395; Add 1613 1613 1374; Sub 1613 1613 1373; Mul 1373 955 1613; Mul 1374 978 1635;
  Add 1373 1373 1374; Add 1282 1282 1373; Mul 1373 944 1282; Mul 1374 973 1346; Add 1373 1373 1374;
  Sub 1128 1128 1373; Div 1373 1128 980; Mul 1128 979 1128; Mul 1374 947 1282; Mul 1466 973 1266;
  Add 1374 1374 1466; Sub 1555 1555 1374; Mul 1374 981 1555; Add 1128 1128 1374; Mul 1374 949 1282;
  Mul 1466 973 1205; Add 1374 1374 1466; Sub 1356 1356 1374; Mul 1374 982 1356; Add 1128 1128 1374;
  Mul 1374 951 1282; Mul 1466 973 1171; Add 1374 1374 1466; Sub 1470 1470 1374; Mul 1374 983 1470;
  Add 1128 1128 1374; Mul 1374 953 1282; Mul 1466 973 1280; Add 1374 1374 1466; Sub 1660 1660 1374;
  Mul 1374 984 1660; Add 1128 1128 1374; Mul 1374 955 1282; Mul 1466 973 1635; Add 1374 1374 1466;
  Sub 1613 1613 1374; Mul 1374 985 1613; Add 1128 1128 1374; Div 1128 1128 1630; Mul 1374 1629 1128;
  Sub 1373 1373 1374; Mul 1374 956 1373; Add 1190 1190 1374; Mul 1374 947 1329; Mul 1466 945 1266;
  Add 1374 1374 1466; Sub 1150 1150 1374; Mul 1374 989 1150; Div 1555 1555 980; Mul 1466 1262 1128;
  Sub 1555 1555 1466; Mul 1466 988 1555; Add 1374 1374 1466; Add 1190 1190 1374; Mul 1374 949 1329;
  Mul 1466 945 1205; Add 1374 1374 1466; Sub 1120 1120 1374; Mul 1374 991 1120; Div 1356 1356 980;
  Mul 1466 1306 1128; Sub 1356 1356 1466; Mul 1466 990 1356; Add 1374 1374 1466; Add 1190 1190 1374;
  Mul 1374 951 1329; Mul 1466 945 1171; Add 1374 1374 1466; Sub 1307 1307 1374; Mul 1374 993 1307;
  Div 1470 1470 980; Mul 1466 1626 1128; Sub 1470 1470 1466; Mul 1466 992 1470; Add 1374 1374 1466;
  Add 1190 1190 1374; Mul 1374 953 1329; Mul 1466 945 1280; Add 1374 1374 1466; Sub 1476 1476 1374;
  Mul 1374 995 1476; Div 1660 1660 980; Mul 1466 1530 1128; Sub 1660 1660 1466; Mul 1466 994 1660;
  Add 1374 1374 1466; Add 1190 1190 1374; Mul 1374 955 1329; Mul 1466 945 1635; Add 1374 1374 1466;
  Sub 1418 1418 1374; Mul 1374 997 1418; Div 1613 1613 980; Mul 1466 1472 1128].
Definition casadi_f0_929 : list instruction := [
  Sub 1613 1613 1466; Mul 1466 996 1613; Add 1374 1374 1466; Add 1190 1190 1374; Mul 1374 986 1190;
  Mul 1466 987 1373; Add 1374 1374 1466; Sub 1115 1115 1374; Div 1374 1115 999; Mul 1115 998 1115;
  Mul 1466 989 1190; Mul 1165 987 1555; Add 1466 1466 1165; Sub 1150 1150 1466; Mul 1466 1000 1150;
  Add 1115 1115 1466; Mul 1466 991 1190; Mul 1165 987 1356; Add 1466 1466 1165; Sub 1120 1120 1466;
  Mul 1466 1001 1120; Add 1115 1115 1466; Mul 1466 993 1190; Mul 1165 987 1470; Add 1466 1466 1165;
  Sub 1307 1307 1466; Mul 1466 1002 1307; Add 1115 1115 1466; Mul 1466 995 1190; Mul 1165 987 1660;
  Add 1466 1466 1165; Sub 1476 1476 1466; Mul 1466 1003 1476; Add 1115 1115 1466; Mul 1466 997 1190;
  Mul 1165 987 1613; Add 1466 1466 1165; Sub 1418 1418 1466; Mul 1466 1004 1418; Add 1115 1115 1466;
  Div 1115 1115 1095; Mul 1466 1596 1115; Sub 1374 1374 1466; Mul 1374 211 1374; Mul 1466 1005 1420;
  Sub 1374 1374 1466; Div 1150 1150 999; Mul 1466 1331 1115; Sub 1150 1150 1466; Mul 1150 779 1150;
  Mul 1466 1007 1574; Sub 1150 1150 1466; Add 1374 1374 1150; Div 1120 1120 999; Mul 1150 1080 1115;
  Sub 1120 1120 1150; Mul 1120 767 1120; Mul 1150 1008 1100; Add 1120 1120 1150; Add 1374 1374 1120;
  Div 1307 1307 999; Mul 1120 1056 1115; Sub 1307 1307 1120; Mul 1307 775 1307; Mul 1120 1009 1684;
  Sub 1307 1307 1120; Add 1374 1374 1307; Div 1476 1476 999; Mul 1307 1068 1115; Sub 1476 1476 1307;
  Mul 1476 815 1476; Mul 1307 1010 1642; Add 1476 1476 1307; Add 1374 1374 1476; Div 1418 1418 999;
  Mul 1476 1178 1115; Sub 1418 1418 1476; Mul 1418 833 1418; Mul 1476 1011 1501; Add 1418 1418 1476;
  Add 1374 1374 1418; Div 1374 1374 999; Mul 1115 1033 1115; Sub 1374 1374 1115; Mul 1115 756 1374;
  Add 1412 1412 1115; Sub 1201 1201 1412; Mul 1219 1012 1219; Mul 1373 211 1373; Mul 1412 986 1420;
  Sub 1373 1373 1412; Mul 1555 779 1555; Mul 1412 989 1574; Sub 1555 1555 1412; Add 1373 1373 1555;
  Mul 1356 767 1356; Mul 1555 991 1100; Add 1356 1356 1555; Add 1373 1373 1356; Mul 1470 775 1470;
  Mul 1356 993 1684; Sub 1470 1470 1356; Add 1373 1373 1470; Mul 1660 815 1660; Mul 1470 995 1642;
  Add 1660 1660 1470; Add 1373 1373 1660; Mul 1613 833 1613; Mul 1660 997 1501; Add 1613 1613 1660;
  Add 1373 1373 1613; Mul 1190 1006 1190; Mul 1613 987 1374; Add 1190 1190 1613; Sub 1373 1373 1190;
  Div 1373 1373 980; Mul 1128 1534 1128; Sub 1373 1373 1128; Mul 1128 957 1373; Add 1219 1219 1128;
  Sub 1201 1201 1219; Mul 1298 1013 1298; Mul 1346 211 1346; Mul 1219 944 1420; Sub 1346 1346 1219;
  Mul 1266 779 1266; Mul 1219 947 1574; Sub 1266 1266 1219; Add 1346 1346 1266; Mul 1205 767 1205;
  Mul 1266 949 1100; Add 1205 1205 1266; Add 1346 1346 1205; Mul 1171 775 1171; Mul 1205 951 1684;
  Sub 1171 1171 1205; Add 1346 1346 1171; Mul 1280 815 1280; Mul 1171 953 1642; Add 1280 1280 1171;
  Add 1346 1346 1280; Mul 1635 833 1635; Mul 1280 955 1501; Add 1635 1635 1280; Add 1346 1346 1635;
  Mul 1329 1006 1329; Mul 1635 945 1374; Add 1329 1329 1635; Sub 1346 1346 1329].
Definition casadi_f0_930 : list instruction := [
  Mul 1282 1012 1282; Mul 1329 973 1373; Add 1282 1282 1329; Sub 1346 1346 1282; Div 1346 1346 938;
  Mul 1269 1397 1269; Sub 1346 1346 1269; Mul 1269 922 1346; Add 1298 1298 1269; Sub 1201 1201 1298;
  Mul 1106 1014 1106; Mul 1052 779 1052; Mul 1298 910 1574; Sub 1052 1052 1298; Mul 1025 211 1025;
  Mul 1298 912 1420; Sub 1025 1025 1298; Sub 1052 1052 1025; Mul 1701 767 1701; Mul 1025 914 1100;
  Add 1701 1701 1025; Add 1052 1052 1701; Mul 1577 775 1577; Mul 1701 916 1684; Sub 1577 1577 1701;
  Sub 1052 1052 1577; Mul 1452 815 1452; Mul 1577 918 1642; Add 1452 1452 1577; Sub 1052 1052 1452;
  Mul 1395 833 1395; Mul 1452 920 1501; Add 1395 1395 1452; Sub 1052 1052 1395; Mul 1519 1006 1519;
  Mul 1395 911 1374; Add 1519 1519 1395; Sub 1052 1052 1519; Mul 1600 1012 1600; Mul 1519 967 1373;
  Add 1600 1600 1519; Sub 1052 1052 1600; Mul 1464 1013 1464; Mul 1600 932 1346; Add 1464 1464 1600;
  Sub 1052 1052 1464; Div 1052 1052 905; Mul 1705 1553 1705; Sub 1052 1052 1705; Mul 1705 895 1052;
  Add 1106 1106 1705; Sub 1201 1201 1106; Mul 1609 1015 1609; Mul 1182 211 1182; Mul 1420 881 1420;
  Sub 1182 1182 1420; Mul 1408 779 1408; Mul 1574 884 1574; Sub 1408 1408 1574; Add 1182 1182 1408;
  Mul 1330 767 1330; Mul 1100 886 1100; Add 1330 1330 1100; Add 1182 1182 1330; Mul 1265 775 1265;
  Mul 1684 888 1684; Sub 1265 1265 1684; Add 1182 1182 1265; Mul 1222 815 1222; Mul 1642 890 1642;
  Add 1222 1222 1642; Add 1182 1182 1222; Mul 1202 833 1202; Mul 1501 892 1501; Add 1202 1202 1501;
  Add 1182 1182 1202; Mul 1393 1006 1393; Mul 1202 882 1374; Add 1393 1393 1202; Sub 1182 1182 1393;
  Mul 1344 1012 1344; Mul 1393 959 1373; Add 1344 1344 1393; Sub 1182 1182 1344; Mul 1514 1013 1514;
  Mul 1344 924 1346; Add 1514 1514 1344; Sub 1182 1182 1514; Mul 1387 1014 1387; Mul 1514 897 1052;
  Add 1387 1387 1514; Sub 1182 1182 1387; Div 1182 1182 65; Mul 1221 1623 1221; Sub 1182 1182 1221;
  Mul 1221 875 1182; Add 1609 1609 1221; Sub 1201 1201 1609; Div 1201 1201 92; Mul 1352 759 1352;
  Sub 1201 1201 1352; Add 1183 1183 1201; Out 2 54 1183; Add 1364 1364 1182; Out 2 55 1364; Sub 1052 1052 1309;
  Out 2 56 1052; Add 1561 1561 1346; Out 2 57 1561; Add 1377 1377 1373; Out 2 58 1377; Add 1374 1068 1374;
  Out 2 59 1374; Arg 1374 2 66; Out 2 60 1374; Arg 1377 2 67; Out 2 61 1377; Arg 1373 2 68; Out 2 62 1373;
  Arg 1561 2 69; Out 2 63 1561; Arg 1346 2 70; Out 2 64 1346; Arg 1052 2 71; Out 2 65 1052; Mul 1309 756 1178;
  Sub 1309 754 1309; Mul 1364 987 1178; Sub 1364 997 1364; Div 1364 1364 980; Mul 1182 957 1364;
  Sub 1309 1309 1182; Mul 1182 945 1178; Sub 1182 955 1182; Mul 1183 973 1364; Sub 1182 1182 1183;
  Div 1182 1182 938; Mul 1183 922 1182; Sub 1309 1309 1183; Mul 1183 911 1178; Add 1183 920 1183;
  Mul 1201 967 1364; Add 1183 1183 1201; Mul 1201 932 1182; Add 1183 1183 1201; Div 1183 1183 905;
  Mul 1201 895 1183; Add 1309 1309 1201; Mul 1201 882 1178].
Definition casadi_f0_931 : list instruction := [
  Sub 1201 892 1201; Mul 1352 959 1364; Sub 1201 1201 1352; Mul 1352 924 1182; Sub 1201 1201 1352;
  Mul 1352 897 1183; Add 1201 1201 1352; Div 1201 1201 65; Mul 1352 875 1201; Sub 1309 1309 1352;
  Div 1309 1309 92; Arg 1352 2 62; Mul 1609 8 1352; Mul 10 10 1609; Arg 1221 2 65; Mul 1387 16 1221;
  Mul 1514 21 1387; Mul 1221 15 1221; Mul 1344 18 1221; Mul 1393 14 1387; Add 1344 1344 1393; Mul 1393 15 1344;
  Sub 1514 1514 1393; Mul 1393 18 1387; Mul 1202 14 1221; Sub 1393 1393 1202; Mul 1393 16 1393; Mul 17 17 1221;
  Sub 1393 1393 17; Sub 17 1514 1393; Mul 1202 28 1221; Mul 1501 26 1387; Add 1202 1202 1501;
  Mul 1031 1031 1202; Mul 1501 28 1387; Mul 1222 26 1221; Sub 1501 1501 1222; Mul 29 29 1501; Sub 1222 1031 29;
  Mul 1222 20 1222; Add 17 17 1222; Mul 29 20 29; Add 1514 1514 29; Add 17 17 1514; Mul 1031 20 1031;
  Add 1393 1393 1031; Add 1393 1393 1514; Add 1031 17 1393; Mul 1393 19 1393; Arg 29 2 64; Mul 1222 35 29;
  Mul 30 30 1222; Sub 1393 1393 30; Mul 29 19 29; Mul 30 41 29; Mul 1642 42 1387; Mul 1265 40 1221;
  Sub 1642 1642 1265; Mul 1265 43 1387; Sub 1642 1642 1265; Mul 1265 44 1501; Add 1642 1642 1265;
  Mul 1265 35 1642; Add 30 30 1265; Sub 1393 1393 30; Mul 30 19 1393; Mul 1265 38 1222; Sub 30 30 1265;
  Mul 1642 19 1642; Mul 41 41 1222; Sub 1642 1642 41; Mul 12 12 29; Mul 17 35 17; Add 12 12 17;
  Sub 1642 1642 12; Mul 12 35 1642; Mul 17 46 29; Add 12 12 17; Sub 30 30 12; Sub 1031 1031 30;
  Sub 1031 1031 1514; Mul 12 50 1202; Mul 1039 1039 12; Mul 17 50 1501; Mul 41 19 17; Mul 1265 49 1222;
  Sub 41 41 1265; Mul 1265 51 29; Sub 41 41 1265; Mul 1041 1041 41; Sub 1265 1039 1041; Mul 1265 37 1265;
  Add 1031 1031 1265; Mul 1265 49 29; Mul 1684 35 17; Add 1265 1265 1684; Mul 51 51 1222; Sub 1265 1265 51;
  Mul 64 64 1265; Add 1041 64 1041; Mul 1041 37 1041; Add 1041 1514 1041; Add 1031 1031 1041; Mul 51 43 1221;
  Mul 1684 42 1221; Mul 1330 40 1387; Add 1684 1684 1330; Sub 51 51 1684; Mul 44 44 1202; Sub 51 51 44;
  Mul 44 67 51; Mul 1684 19 44; Mul 1330 71 1222; Sub 1684 1684 1330; Mul 1330 75 29; Mul 1344 16 1344;
  Mul 21 21 1221; Add 1344 1344 21; Mul 74 74 1202; Mul 1501 20 1501; Mul 34 34 1501; Sub 74 74 34;
  Add 1344 1344 74; Add 74 1344 1344; Mul 34 35 74; Sub 1330 1330 34; Add 1684 1684 1330; Mul 1330 73 29;
  Mul 34 35 1344; Sub 1330 1330 34; Mul 34 19 51; Mul 1501 70 1222; Sub 34 34 1501; Add 1330 1330 34;
  Sub 1684 1684 1330; Mul 1330 76 12; Mul 34 37 1265; Mul 1501 57 34; Sub 1330 1330 1501; Sub 1684 1684 1330;
  Mul 1330 67 1684; Mul 1330 66 1330; Arg 1501 2 63; Mul 1202 53 1501; Mul 77 77 1202; Sub 1330 1330 77;
  Mul 1501 66 1501; Mul 11 11 1501; Mul 77 53 1031].
Definition casadi_f0_932 : list instruction := [
  Add 11 11 77; Sub 1330 1330 11; Mul 11 53 1330; Mul 77 78 1501; Add 11 11 77; Add 1031 1031 11;
  Sub 1031 1031 1041; Mul 77 87 1202; Mul 21 83 12; Mul 1100 66 21; Add 77 77 1100; Mul 1100 88 1501;
  Mul 1265 83 1265; Mul 1408 53 1265; Add 1100 1100 1408; Add 77 77 1100; Mul 1054 1054 77; Mul 1100 83 41;
  Mul 1058 1058 1100; Sub 1408 1054 1058; Mul 1408 80 1408; Add 1031 1031 1408; Add 1041 1041 11;
  Mul 11 66 1265; Mul 88 88 1202; Sub 11 11 88; Mul 88 87 1501; Mul 1408 53 21; Sub 88 88 1408; Add 11 11 88;
  Mul 93 93 11; Add 1058 93 1058; Mul 1058 80 1058; Add 1041 1041 1058; Add 1031 1031 1041; Mul 1058 9 1031;
  Add 10 10 1058; Mul 1330 66 1330; Mul 78 78 1202; Sub 1330 1330 78; Sub 1330 1330 1684; Mul 1684 72 77;
  Mul 78 80 11; Mul 1058 63 78; Sub 1684 1684 1058; Sub 1330 1330 1684; Mul 1684 67 1330; Mul 1684 8 1684;
  Mul 1352 9 1352; Mul 97 97 1352; Sub 1684 1684 97; Add 10 10 1684; Mul 1684 9 10; Mul 97 84 1609;
  Add 1684 1684 97; Sub 97 1684 1041; Mul 11 104 11; Mul 1058 8 11; Mul 88 103 1352; Sub 1058 1058 88;
  Mul 88 105 1609; Mul 1408 104 77; Mul 1574 9 1408; Sub 88 88 1574; Sub 1058 1058 88; Mul 33 33 1058;
  Mul 88 104 1100; Mul 1066 1066 88; Add 1574 33 1066; Mul 1574 100 1574; Sub 97 97 1574; Mul 10 8 10;
  Mul 84 84 1352; Sub 10 10 84; Sub 10 10 1330; Mul 1330 103 1609; Mul 84 9 11; Add 1330 1330 84;
  Mul 84 105 1352; Mul 1574 8 1408; Add 84 84 1574; Sub 1330 1330 84; Mul 84 96 1330; Mul 1574 100 1058;
  Mul 1420 117 1574; Sub 84 84 1420; Add 10 10 84; Mul 67 67 10; Mul 67 114 67; Arg 10 2 61; Mul 84 113 10;
  Mul 116 116 84; Sub 67 67 116; Mul 10 114 10; Mul 119 119 10; Sub 1031 1031 1684; Sub 1031 1031 1041;
  Mul 1044 1044 1330; Sub 1066 1044 1066; Mul 1066 100 1066; Add 1031 1031 1066; Sub 1031 1031 97;
  Mul 1031 113 1031; Add 119 119 1031; Sub 67 67 119; Mul 67 113 67; Mul 118 118 10; Add 67 67 118;
  Sub 97 97 67; Mul 1058 120 1058; Mul 67 114 1058; Mul 60 60 84; Sub 67 67 60; Mul 60 121 10; Mul 118 120 1330;
  Mul 119 113 118; Add 60 60 119; Add 67 67 60; Mul 112 112 67; Mul 60 120 88; Mul 123 123 60; Add 112 112 123;
  Mul 99 99 112; Sub 97 97 99; Mul 67 125 67; Mul 110 110 67; Mul 125 125 60; Mul 126 126 125; Add 110 110 126;
  Mul 122 122 110; Add 97 97 122; Div 122 97 92; Mul 6 6 97; Mul 97 130 1609; Mul 1642 19 1642; Mul 46 46 1222;
  Sub 1642 1642 46; Mul 1393 35 1393; Mul 38 38 29; Add 1393 1393 38; Add 1642 1642 1393; Mul 52 52 34;
  Mul 76 76 41; Add 52 52 76; Add 1642 1642 52; Mul 52 66 1642; Mul 76 129 1202; Sub 52 52 76; Mul 76 132 1501].
Definition casadi_f0_933 : list instruction := [
  Mul 70 70 29; Mul 34 35 51; Add 70 70 34; Mul 73 73 1222; Mul 34 19 1344; Add 73 73 34; Add 70 70 73;
  Mul 74 19 74; Mul 75 75 1222; Add 74 74 75; Mul 44 35 44; Mul 71 71 29; Add 44 44 71; Add 74 74 44;
  Sub 70 70 74; Mul 133 133 12; Mul 41 37 41; Mul 57 57 41; Sub 133 133 57; Sub 70 70 133; Mul 133 53 70;
  Add 76 76 133; Add 52 52 76; Mul 27 27 78; Mul 72 72 1100; Add 27 27 72; Add 52 52 27; Mul 27 9 52;
  Add 97 97 27; Add 27 70 70; Mul 27 66 27; Mul 136 136 1202; Sub 27 27 136; Mul 129 129 1501; Mul 136 53 1642;
  Add 129 129 136; Sub 27 27 129; Mul 129 66 70; Mul 132 132 1202; Sub 129 129 132; Sub 27 27 129;
  Mul 138 138 77; Mul 77 80 1100; Mul 63 63 77; Sub 138 138 63; Sub 27 27 138; Add 138 27 27; Mul 138 8 138;
  Mul 139 139 1352; Sub 138 138 139; Add 97 97 138; Mul 138 8 27; Mul 139 137 1352; Sub 138 138 139;
  Sub 97 97 138; Mul 140 140 1330; Mul 1330 100 88; Mul 117 117 1330; Sub 140 140 117; Add 97 97 140;
  Mul 140 141 60; Mul 121 121 140; Mul 142 142 118; Add 121 121 142; Sub 97 97 121; Mul 97 114 97;
  Mul 134 134 84; Sub 97 97 134; Mul 145 145 10; Mul 134 8 52; Mul 130 130 1352; Sub 134 134 130;
  Mul 137 137 1609; Mul 130 9 27; Add 137 137 130; Sub 134 134 137; Mul 111 111 1574; Mul 96 96 88;
  Add 111 111 96; Add 134 134 111; Mul 111 141 1058; Mul 124 124 111; Mul 146 146 60; Add 124 124 146;
  Sub 134 134 124; Mul 134 113 134; Add 145 145 134; Sub 97 97 145; Mul 1073 1073 97; Add 6 6 1073;
  Mul 150 150 10; Mul 1073 149 1609; Mul 145 148 88; Mul 134 147 1408; Mul 124 109 134; Sub 145 145 124;
  Add 27 27 145; Mul 145 9 27; Add 1073 1073 145; Mul 88 151 88; Mul 147 147 11; Mul 109 109 147; Add 88 88 109;
  Add 52 52 88; Mul 88 8 52; Mul 109 152 1352; Sub 88 88 109; Sub 1073 1073 88; Mul 88 148 1609; Mul 109 9 134;
  Sub 88 88 109; Mul 109 8 147; Mul 145 151 1352; Sub 109 109 145; Sub 88 88 109; Mul 109 108 88;
  Add 1073 1073 109; Mul 1073 113 1073; Add 150 150 1073; Mul 152 152 1609; Mul 52 9 52; Add 152 152 52;
  Mul 27 8 27; Mul 149 149 1352; Sub 27 27 149; Add 152 152 27; Mul 27 151 1609; Mul 149 9 147; Add 27 27 149;
  Mul 149 148 1352; Mul 52 8 134; Add 149 149 52; Sub 27 27 149; Mul 27 108 27; Add 152 152 27; Mul 152 114 152;
  Mul 155 155 84; Sub 152 152 155; Add 150 150 152; Mul 1050 1050 150; Add 6 6 1050; Mul 1050 159 1609;
  Mul 152 156 1265; Mul 82 82 152; Mul 157 157 1100; Add 82 82 157; Sub 1642 1642 82; Mul 82 66 1642;
  Mul 157 158 1202].
Definition casadi_f0_934 : list instruction := [
  Sub 82 82 157; Mul 157 161 1501; Mul 1100 156 1100; Mul 87 87 1100; Mul 160 160 21; Sub 87 87 160;
  Sub 70 70 87; Mul 87 53 70; Add 157 157 87; Add 82 82 157; Mul 157 9 82; Add 1050 1050 157; Mul 70 66 70;
  Mul 161 161 1202; Sub 70 70 161; Mul 158 158 1501; Mul 1642 53 1642; Add 158 158 1642; Sub 70 70 158;
  Mul 158 8 70; Mul 1642 163 1352; Sub 158 158 1642; Add 1050 1050 158; Mul 158 167 1501; Mul 166 166 1265;
  Mul 1642 53 166; Add 158 158 1642; Mul 1642 164 1202; Mul 161 156 21; Mul 157 66 161; Add 1642 1642 157;
  Sub 158 158 1642; Mul 1642 8 158; Mul 157 165 1352; Sub 1642 1642 157; Mul 157 169 1609; Mul 166 66 166;
  Mul 167 167 1202; Sub 166 166 167; Mul 164 164 1501; Mul 161 53 161; Sub 164 164 161; Sub 166 166 164;
  Mul 164 9 166; Add 157 157 164; Sub 1642 1642 157; Mul 1642 108 1642; Sub 1050 1050 1642; Mul 1050 114 1050;
  Mul 162 162 84; Sub 1050 1050 162; Mul 170 170 10; Mul 82 8 82; Mul 159 159 1352; Sub 82 82 159;
  Mul 163 163 1609; Mul 70 9 70; Add 163 163 70; Sub 82 82 163; Mul 165 165 1609; Mul 163 9 158;
  Add 165 165 163; Mul 163 8 166; Mul 169 169 1352; Sub 163 163 169; Add 165 165 163; Mul 163 108 165;
  Add 82 82 163; Mul 82 113 82; Add 170 170 82; Sub 1050 1050 170; Mul 1070 1070 1050; Add 6 6 1070;
  Mul 1070 179 1609; Mul 170 177 1501; Mul 82 174 17; Mul 173 173 17; Mul 49 49 173; Add 82 82 49;
  Add 82 82 1514; Mul 49 174 29; Mul 17 35 173; Add 49 49 17; Mul 17 176 1222; Sub 49 49 17; Mul 17 62 49;
  Mul 163 176 29; Mul 169 19 173; Mul 70 174 1222; Sub 169 169 70; Sub 163 163 169; Mul 169 48 163;
  Sub 17 17 169; Add 17 82 17; Mul 169 53 17; Add 170 170 169; Mul 176 176 12; Sub 51 51 176; Mul 176 19 51;
  Mul 169 180 1222; Sub 176 176 169; Mul 169 182 29; Mul 56 56 173; Mul 174 174 12; Sub 56 56 174;
  Sub 56 56 1344; Mul 1344 35 56; Add 169 169 1344; Add 176 176 169; Mul 169 55 49; Add 176 176 169;
  Mul 169 66 176; Mul 1344 181 1202; Sub 169 169 1344; Sub 170 170 169; Mul 169 86 49; Sub 170 170 169;
  Mul 169 9 170; Add 1070 1070 169; Mul 181 181 1501; Mul 176 53 176; Add 181 181 176; Mul 17 66 17;
  Mul 177 177 1202; Sub 17 17 177; Add 181 181 17; Mul 17 91 49; Add 181 181 17; Mul 17 8 181; Mul 177 184 1352;
  Sub 17 17 177; Add 1070 1070 17; Mul 49 102 49; Mul 17 66 163; Mul 177 178 1202; Sub 17 17 177; Mul 177 8 17;
  Mul 176 185 1352; Sub 177 177 176; Mul 176 187 1609; Mul 178 178 1501; Mul 169 53 163; Add 178 178 169;
  Mul 169 9 178; Add 176 176 169; Add 177 177 176; Mul 177 108 177; Sub 49 49 177; Add 1070 1070 49].
Definition casadi_f0_935 : list instruction := [
  Mul 1070 114 1070; Mul 183 183 84; Sub 1070 1070 183; Mul 186 186 10; Mul 170 8 170; Mul 179 179 1352;
  Sub 170 170 179; Mul 184 184 1609; Mul 181 9 181; Add 184 184 181; Sub 170 170 184; Mul 185 185 1609;
  Mul 184 9 17; Add 185 185 184; Mul 184 8 178; Mul 187 187 1352; Sub 184 184 187; Sub 185 185 184;
  Mul 184 108 185; Add 170 170 184; Mul 170 113 170; Add 186 186 170; Sub 1070 1070 186; Mul 1059 1059 1070;
  Add 6 6 1059; Mul 1059 199 1609; Mul 186 196 29; Mul 170 197 1387; Mul 184 195 1221; Sub 170 170 184;
  Mul 184 190 1221; Mul 187 192 1387; Add 184 184 187; Mul 187 198 184; Add 170 170 187; Mul 187 35 170;
  Add 186 186 187; Mul 187 189 1222; Mul 181 25 184; Mul 190 190 1387; Mul 192 192 1221; Sub 190 190 192;
  Mul 192 32 190; Add 181 181 192; Mul 192 19 181; Add 187 187 192; Sub 186 186 187; Mul 187 48 184;
  Mul 192 19 190; Mul 179 194 1222; Sub 192 192 179; Mul 179 55 192; Add 187 187 179; Sub 186 186 187;
  Mul 187 66 186; Mul 179 193 1202; Sub 187 187 179; Mul 179 202 1501; Mul 183 198 190; Mul 197 197 1221;
  Mul 195 195 1387; Add 197 197 195; Sub 183 183 197; Mul 197 62 192; Mul 194 194 29; Mul 190 35 190;
  Add 194 194 190; Mul 190 48 194; Sub 197 197 190; Add 197 183 197; Mul 190 53 197; Add 179 179 190;
  Add 187 187 179; Mul 179 86 192; Sub 187 187 179; Mul 179 9 187; Add 1059 1059 179; Mul 197 66 197;
  Mul 202 202 1202; Sub 197 197 202; Mul 193 193 1501; Mul 186 53 186; Add 193 193 186; Sub 197 197 193;
  Mul 193 91 192; Add 197 197 193; Mul 193 8 197; Mul 186 205 1352; Sub 193 193 186; Add 1059 1059 193;
  Mul 192 102 192; Mul 193 66 194; Mul 186 203 1202; Sub 193 193 186; Mul 186 191 1501; Mul 202 53 184;
  Sub 186 186 202; Add 193 193 186; Mul 186 8 193; Mul 202 206 1352; Sub 186 186 202; Mul 202 208 1609;
  Mul 191 191 1202; Mul 179 66 184; Add 191 191 179; Mul 203 203 1501; Mul 179 53 194; Add 203 203 179;
  Add 191 191 203; Mul 203 9 191; Sub 202 202 203; Sub 186 186 202; Mul 186 108 186; Sub 192 192 186;
  Add 1059 1059 192; Mul 1059 114 1059; Mul 204 204 84; Sub 1059 1059 204; Mul 207 207 10; Mul 187 8 187;
  Mul 199 199 1352; Sub 187 187 199; Mul 205 205 1609; Mul 197 9 197; Add 205 205 197; Sub 187 187 205;
  Mul 206 206 1609; Mul 205 9 193; Add 206 206 205; Mul 208 208 1352; Mul 205 8 191; Add 208 208 205;
  Sub 206 206 208; Mul 208 108 206; Add 187 187 208; Mul 187 113 187; Add 207 207 187; Sub 1059 1059 207;
  Mul 1043 1043 1059; Add 6 6 1043; Div 6 6 1085; Mul 1072 1072 6; Sub 122 122 1072; Mul 1072 211 122;
  Mul 1085 216 10; Arg 1043 2 60; Mul 207 215 1043; Mul 187 113 207; Sub 1085 1085 187].
Definition casadi_f0_936 : list instruction := [
  Mul 187 218 1085; Mul 208 114 1374; Mul 205 0 84; Sub 208 208 205; Mul 205 217 208; Add 187 187 205;
  Mul 1043 216 1043; Mul 205 1 1043; Mul 197 215 1377; Add 205 205 197; Sub 187 187 205; Mul 205 0 10;
  Mul 197 113 1374; Add 205 205 197; Mul 197 220 205; Mul 199 114 207; Mul 204 216 84; Add 199 199 204;
  Mul 204 221 199; Sub 197 197 204; Sub 187 187 197; Mul 197 214 187; Mul 204 213 197; Mul 204 212 204;
  Mul 192 225 204; Mul 186 114 1043; Mul 202 215 84; Sub 186 186 202; Mul 202 101 186; Mul 203 107 207;
  Sub 202 202 203; Mul 203 223 202; Add 179 192 203; Mul 190 216 1377; Mul 195 1 207; Sub 190 190 195;
  Mul 195 113 1043; Mul 49 215 10; Add 195 195 49; Mul 49 218 195; Mul 177 228 208; Add 49 49 177;
  Add 190 190 49; Mul 49 221 186; Mul 177 224 205; Add 49 49 177; Sub 190 190 49; Mul 49 214 190;
  Mul 177 213 49; Mul 177 212 177; Mul 176 231 177; Mul 169 101 199; Mul 1344 107 1043; Add 169 169 1344;
  Mul 1344 230 169; Sub 176 176 1344; Sub 1344 179 176; Add 203 203 192; Sub 176 203 176; Add 192 1344 176;
  Mul 174 144 10; Mul 12 215 174; Mul 173 240 1043; Add 12 12 173; Mul 173 236 84; Mul 70 238 10;
  Add 173 173 70; Mul 70 220 173; Mul 159 237 199; Add 70 70 159; Sub 12 12 70; Mul 70 115 207; Add 12 12 70;
  Mul 70 212 169; Mul 159 242 70; Mul 162 101 10; Mul 1642 241 162; Add 159 159 1642; Add 159 12 159;
  Mul 1642 244 159; Mul 157 213 190; Mul 164 243 157; Add 161 1642 164; Mul 167 237 186; Mul 87 224 173;
  Sub 167 167 87; Mul 174 216 174; Mul 240 240 207; Sub 174 174 240; Sub 167 167 174; Mul 115 115 1043;
  Sub 167 167 115; Mul 115 212 202; Mul 115 242 115; Mul 247 247 162; Sub 115 115 247; Sub 115 167 115;
  Mul 247 249 115; Mul 174 213 187; Mul 240 248 174; Add 87 247 240; Sub 160 161 87; Sub 192 192 160;
  Add 240 240 247; Add 164 164 1642; Sub 1642 240 164; Add 192 192 1642; Mul 1642 9 1085; Mul 247 217 1609;
  Add 1642 1642 247; Mul 247 8 199; Mul 160 220 1352; Add 247 247 160; Sub 1642 1642 247; Mul 247 254 1642;
  Mul 160 218 1609; Mul 1100 9 208; Add 160 160 1100; Mul 1100 8 205; Mul 152 221 1352; Sub 1100 1100 152;
  Sub 160 160 1100; Mul 1100 253 160; Add 247 247 1100; Mul 1085 8 1085; Mul 217 217 1352; Sub 1085 1085 217;
  Mul 217 220 1609; Mul 1100 9 199; Sub 217 217 1100; Sub 1085 1085 217; Mul 217 257 1085; Mul 1100 221 1609;
  Mul 152 9 205; Add 1100 1100 152; Mul 152 8 208; Mul 155 218 1352; Sub 152 152 155; Add 1100 1100 152;
  Mul 152 256 1100; Add 217 217 152; Mul 152 259 1043; Sub 155 1377 1373; Mul 27 215 155; Add 152 152 27;
  Sub 217 217 152; Add 247 247 217; Mul 217 213 247; Mul 152 276 217].
Definition casadi_f0_937 : list instruction := [
  Mul 27 114 1609; Mul 149 9 84; Sub 27 27 149; Mul 149 8 10; Mul 52 113 1352; Sub 149 149 52; Sub 27 27 149;
  Mul 149 260 27; Mul 52 9 10; Mul 1073 113 1609; Add 52 52 1073; Mul 1073 8 84; Mul 109 114 1352;
  Add 1073 1073 109; Sub 52 52 1073; Mul 1073 263 52; Add 149 149 1073; Mul 1073 265 149; Mul 109 8 186;
  Mul 145 224 1352; Sub 109 109 145; Mul 145 9 195; Mul 124 228 1609; Add 145 145 124; Add 109 109 145;
  Mul 145 262 109; Add 1073 1073 145; Mul 145 127 27; Mul 124 268 52; Add 145 145 124; Mul 124 216 145;
  Mul 146 267 207; Sub 124 124 146; Add 1073 1073 124; Mul 124 135 1642; Mul 146 95 1043; Add 124 124 146;
  Sub 1073 1073 124; Mul 124 102 186; Mul 146 108 207; Sub 124 124 146; Mul 146 79 109; Mul 60 8 195;
  Mul 228 228 1352; Sub 60 60 228; Mul 228 9 186; Mul 111 224 1609; Add 228 228 111; Sub 60 60 228;
  Mul 228 85 60; Mul 111 81 207; Sub 228 228 111; Add 146 146 228; Add 146 124 146; Mul 228 269 146;
  Mul 228 275 228; Mul 111 79 27; Mul 96 85 52; Add 111 111 96; Mul 96 102 10; Sub 111 111 96; Mul 272 272 111;
  Add 228 228 272; Sub 228 1073 228; Mul 272 258 228; Add 1574 152 272; Mul 137 254 109; Mul 130 265 160;
  Add 137 137 130; Mul 130 216 155; Mul 259 259 207; Sub 130 130 259; Mul 259 257 60; Mul 121 273 1100;
  Add 259 259 121; Add 130 130 259; Add 137 137 130; Mul 130 213 137; Mul 259 284 130; Mul 121 253 149;
  Mul 142 262 1642; Add 121 121 142; Mul 145 215 145; Mul 267 267 1043; Add 145 145 267; Sub 121 121 145;
  Mul 95 95 207; Mul 145 135 109; Add 95 95 145; Add 121 121 95; Mul 95 79 1642; Mul 145 85 1085;
  Mul 267 81 1043; Sub 145 145 267; Add 95 95 145; Mul 145 102 199; Mul 267 108 1043; Add 145 145 267;
  Sub 95 95 145; Mul 267 269 95; Mul 142 275 267; Mul 140 283 111; Add 142 142 140; Sub 142 121 142;
  Mul 140 279 142; Add 117 259 140; Sub 1330 1574 117; Mul 138 292 111; Mul 139 288 52; Mul 63 287 1609;
  Mul 77 108 208; Mul 129 9 77; Add 63 63 129; Mul 129 102 1377; Mul 132 108 205; Add 129 129 132;
  Mul 132 8 129; Mul 136 289 1352; Sub 132 132 136; Sub 63 63 132; Mul 132 264 63; Add 139 139 132;
  Mul 132 291 27; Mul 77 8 77; Mul 287 287 1352; Sub 77 77 287; Mul 289 289 1609; Mul 129 9 129;
  Add 289 289 129; Add 77 77 289; Mul 289 261 77; Add 132 132 289; Sub 139 139 132; Mul 132 281 137;
  Mul 289 278 145; Sub 132 132 289; Mul 289 255 124; Mul 129 270 247; Add 289 289 129; Sub 132 132 289;
  Add 139 139 132; Mul 132 213 139; Mul 132 269 132; Mul 289 275 132; Add 129 138 289; Mul 287 288 1085;
  Mul 136 256 63; Add 287 287 136; Mul 136 295 1043].
Definition casadi_f0_938 : list instruction := [
  Mul 72 102 208; Mul 78 215 72; Add 136 136 78; Sub 287 287 136; Mul 136 291 1642; Mul 78 253 77;
  Add 136 136 78; Sub 287 287 136; Mul 136 296 124; Mul 78 254 27; Mul 76 261 160; Add 78 78 76; Mul 76 257 52;
  Mul 133 264 1100; Add 76 76 133; Add 78 78 76; Mul 76 270 78; Add 136 136 76; Mul 76 274 137; Mul 133 278 96;
  Sub 76 76 133; Sub 136 136 76; Add 287 287 136; Mul 136 213 287; Mul 136 269 136; Mul 76 282 136;
  Mul 133 297 95; Add 57 76 133; Mul 41 216 72; Mul 295 295 207; Sub 41 41 295; Mul 288 288 60; Mul 295 273 63;
  Add 288 288 295; Add 41 41 288; Mul 291 291 109; Mul 288 265 77; Add 291 291 288; Sub 41 41 291;
  Mul 291 274 247; Mul 288 255 96; Sub 291 291 288; Mul 288 281 78; Mul 295 296 145; Sub 288 288 295;
  Sub 291 291 288; Add 41 41 291; Mul 291 213 41; Mul 291 269 291; Mul 288 271 291; Mul 295 300 146;
  Add 74 288 295; Add 289 289 138; Add 138 74 289; Add 57 57 138; Sub 44 129 57; Add 133 133 76;
  Add 295 295 288; Add 129 295 129; Add 133 133 129; Sub 289 289 133; Add 44 44 289; Add 140 140 259;
  Add 272 272 152; Sub 152 140 272; Add 44 44 152; Sub 1330 1330 44; Mul 44 66 1642; Mul 152 253 1202;
  Sub 44 44 152; Mul 152 53 1085; Mul 259 256 1501; Add 152 152 259; Sub 44 44 152; Mul 152 308 44;
  Mul 259 66 160; Mul 289 254 1202; Sub 259 259 289; Mul 289 257 1501; Mul 288 53 1100; Add 289 289 288;
  Sub 259 259 289; Mul 289 304 259; Add 152 152 289; Mul 289 53 1642; Mul 288 253 1501; Add 289 289 288;
  Mul 288 66 1085; Mul 256 256 1202; Sub 288 288 256; Add 289 289 288; Mul 288 311 289; Mul 254 254 1501;
  Mul 256 53 160; Add 254 254 256; Mul 256 66 1100; Mul 257 257 1202; Sub 256 256 257; Add 254 254 256;
  Mul 256 310 254; Add 288 288 256; Mul 256 313 1043; Add 257 1561 155; Mul 76 215 257; Add 256 256 76;
  Sub 288 288 256; Add 152 152 288; Mul 288 213 152; Mul 256 330 288; Mul 76 66 27; Mul 71 261 1202;
  Sub 76 76 71; Mul 71 53 52; Mul 75 264 1501; Add 71 71 75; Sub 76 76 71; Mul 71 314 76; Mul 75 53 27;
  Mul 73 261 1501; Add 75 75 73; Mul 73 66 52; Mul 264 264 1202; Sub 73 73 264; Add 75 75 73; Mul 73 317 75;
  Add 71 71 73; Mul 73 319 71; Mul 264 66 109; Mul 34 265 1202; Sub 264 264 34; Mul 34 53 60; Mul 1393 273 1501;
  Add 34 34 1393; Sub 264 264 34; Mul 34 316 264; Add 73 73 34; Mul 34 128 76; Mul 1393 322 75; Add 34 34 1393;
  Mul 1393 216 34; Mul 38 321 207; Sub 1393 1393 38; Add 73 73 1393; Mul 1393 131 44; Mul 38 68 1043;
  Add 1393 1393 38; Sub 73 73 1393; Mul 1393 91 109; Mul 38 86 60].
Definition casadi_f0_939 : list instruction := [
  Add 1393 1393 38; Add 1393 124 1393; Mul 38 61 264; Mul 46 53 109; Mul 110 265 1501; Add 46 46 110;
  Mul 110 66 60; Mul 273 273 1202; Sub 110 110 273; Add 46 46 110; Mul 110 54 46; Mul 273 47 207;
  Sub 110 110 273; Add 38 38 110; Add 38 1393 38; Mul 110 323 38; Mul 110 329 110; Mul 273 91 27; Mul 52 86 52;
  Add 273 273 52; Sub 273 273 96; Mul 52 61 76; Mul 126 54 75; Add 52 52 126; Add 52 273 52; Mul 326 326 52;
  Add 110 110 326; Sub 110 73 110; Mul 326 312 110; Add 126 256 326; Mul 125 308 264; Mul 67 319 259;
  Add 125 125 67; Mul 67 216 257; Mul 99 313 207; Sub 67 67 99; Mul 99 311 46; Mul 112 327 254; Add 99 99 112;
  Add 67 67 99; Add 125 125 67; Mul 67 213 125; Mul 99 338 67; Mul 112 304 71; Mul 123 316 44; Add 112 112 123;
  Mul 34 215 34; Mul 321 321 1043; Add 34 34 321; Sub 112 112 34; Mul 68 68 207; Mul 34 131 264; Add 68 68 34;
  Add 112 112 68; Mul 68 91 1642; Mul 1085 86 1085; Add 68 68 1085; Sub 68 68 145; Mul 1085 61 44;
  Mul 34 54 289; Mul 321 47 1043; Sub 34 34 321; Add 1085 1085 34; Add 1085 68 1085; Mul 34 323 1085;
  Mul 321 329 34; Mul 123 337 52; Add 321 321 123; Sub 321 112 321; Mul 123 333 321; Add 119 99 123;
  Sub 1031 126 119; Mul 1066 346 52; Mul 1041 342 76; Mul 1684 86 155; Sub 1684 1684 77; Mul 77 66 1684;
  Mul 116 341 1202; Sub 77 77 116; Mul 116 343 1501; Mul 155 91 155; Sub 63 63 155; Mul 155 53 63;
  Add 116 116 155; Sub 77 77 116; Mul 116 315 77; Add 1041 1041 116; Mul 116 345 75; Mul 341 341 1501;
  Mul 1684 53 1684; Add 341 341 1684; Mul 63 66 63; Mul 343 343 1202; Sub 63 63 343; Add 341 341 63;
  Mul 63 318 341; Add 116 116 63; Add 1041 1041 116; Mul 116 332 68; Mul 63 335 125; Add 116 116 63;
  Mul 63 309 1393; Mul 343 324 152; Add 63 63 343; Sub 116 116 63; Add 1041 1041 116; Mul 116 213 1041;
  Mul 116 323 116; Mul 63 329 116; Add 343 1066 63; Mul 1684 342 44; Mul 155 304 77; Add 1684 1684 155;
  Mul 155 345 289; Mul 1420 310 341; Add 155 155 1420; Mul 1420 350 1043; Mul 160 86 160; Mul 1100 91 1100;
  Sub 160 160 1100; Sub 72 72 160; Mul 160 215 72; Add 1420 1420 160; Sub 155 155 1420; Add 1684 1684 155;
  Mul 155 349 1393; Mul 1420 308 76; Mul 160 315 259; Add 1420 1420 160; Mul 311 311 75; Mul 160 318 254;
  Add 311 311 160; Add 1420 1420 311; Mul 311 324 1420; Add 155 155 311; Mul 311 332 273; Mul 160 328 125;
  Add 311 311 160; Sub 155 155 311; Add 1684 1684 155; Mul 155 213 1684; Mul 155 323 155; Mul 311 336 155;
  Mul 160 351 1085; Add 1100 311 160; Mul 342 342 264; Mul 1106 319 77; Add 342 342 1106; Mul 1106 216 72].
Definition casadi_f0_940 : list instruction := [
  Mul 350 350 207; Sub 1106 1106 350; Mul 345 345 46; Mul 350 327 341; Add 345 345 350; Add 1106 1106 345;
  Add 342 342 1106; Mul 1106 309 273; Mul 345 328 152; Add 1106 1106 345; Mul 345 349 68; Mul 350 335 1420;
  Add 345 345 350; Sub 1106 1106 345; Add 342 342 1106; Mul 1106 213 342; Mul 1106 323 1106; Mul 345 325 1106;
  Mul 350 354 38; Add 1705 345 350; Add 63 63 1066; Add 1066 1705 63; Add 1100 1100 1066; Sub 1464 343 1100;
  Add 160 160 311; Add 350 350 345; Add 343 350 343; Add 160 160 343; Sub 63 63 160; Add 1464 1464 63;
  Add 123 123 99; Add 326 326 256; Sub 256 123 326; Add 1464 1464 256; Sub 1031 1031 1464; Mul 1464 19 44;
  Mul 256 304 1222; Sub 1464 1464 256; Mul 256 35 1043; Mul 99 215 29; Add 256 256 99; Add 1464 1464 256;
  Mul 256 362 1464; Mul 99 19 259; Mul 63 308 1222; Sub 99 99 63; Mul 63 313 29; Mul 345 35 257; Add 63 63 345;
  Sub 99 99 63; Mul 63 358 99; Add 256 256 63; Mul 63 35 44; Mul 345 304 29; Add 63 63 345; Mul 345 19 1043;
  Mul 311 215 1222; Sub 345 345 311; Sub 63 63 345; Mul 345 365 63; Mul 308 308 29; Mul 311 35 259;
  Add 308 308 311; Mul 311 19 257; Mul 313 313 1222; Sub 311 311 313; Add 308 308 311; Mul 311 364 308;
  Add 345 345 311; Mul 311 367 289; Sub 313 254 1346; Mul 1600 310 313; Add 311 311 1600; Add 345 345 311;
  Add 256 256 345; Mul 345 213 256; Mul 311 385 345; Mul 1600 19 76; Mul 1519 315 1222; Sub 1600 1600 1519;
  Mul 1519 368 1600; Mul 1395 35 76; Mul 1452 315 29; Add 1395 1395 1452; Mul 1452 39 1395; Mul 1577 373 75;
  Add 1452 1452 1577; Add 1519 1519 1452; Mul 1452 372 1519; Mul 1577 19 264; Mul 1701 319 1222;
  Sub 1577 1577 1701; Mul 1701 216 29; Mul 1025 35 207; Sub 1701 1701 1025; Sub 1577 1577 1701;
  Mul 1701 370 1577; Add 1452 1452 1701; Mul 1701 39 1600; Mul 1025 376 1395; Add 1701 1701 1025;
  Mul 1025 377 1701; Mul 1298 35 264; Mul 1269 319 29; Add 1298 1298 1269; Mul 1269 19 207; Mul 1282 216 1222;
  Add 1269 1269 1282; Sub 1298 1298 1269; Mul 1269 375 1298; Add 1025 1025 1269; Add 1452 1452 1025;
  Mul 1025 69 63; Add 1452 1452 1025; Mul 1025 62 264; Mul 1269 55 46; Mul 1282 48 207; Sub 1269 1269 1282;
  Add 1025 1025 1269; Add 1025 1393 1025; Mul 1269 380 1577; Mul 1282 24 1298; Mul 1329 31 46;
  Add 1282 1282 1329; Add 1269 1269 1282; Add 1269 1025 1269; Mul 1282 378 1269; Mul 1282 384 1282;
  Mul 1329 62 76; Mul 1635 55 75; Add 1329 1329 1635; Add 1329 273 1329; Mul 1635 380 1600; Mul 1280 24 1395;
  Mul 1171 31 75; Add 1280 1280 1171; Add 1635 1635 1280; Add 1635 1329 1635; Mul 382 382 1635;
  Add 1282 1282 382; Sub 1282 1452 1282; Mul 382 366 1282; Add 1280 311 382; Mul 1171 362 1577; Mul 1205 372 99;
  Add 1171 1171 1205; Mul 1205 365 1298; Mul 1266 377 308; Add 1205 1205 1266].
Definition casadi_f0_941 : list instruction := [
  Mul 1266 367 46; Mul 1219 327 313; Add 1266 1266 1219; Add 1205 1205 1266; Add 1171 1171 1205;
  Mul 1205 213 1171; Mul 1266 393 1205; Mul 1219 358 1519; Mul 1128 370 1464; Add 1219 1219 1128;
  Mul 1128 364 1701; Mul 1190 375 63; Add 1128 1128 1190; Add 1219 1219 1128; Mul 1128 69 1298;
  Sub 1219 1219 1128; Mul 1128 62 44; Mul 1190 55 289; Mul 1613 48 1043; Sub 1190 1190 1613; Add 1128 1128 1190;
  Add 1128 68 1128; Mul 1190 380 1464; Mul 1613 24 63; Mul 1660 31 289; Add 1613 1613 1660; Add 1190 1190 1613;
  Add 1190 1128 1190; Mul 1613 378 1190; Mul 1660 384 1613; Mul 1470 392 1635; Add 1660 1660 1470;
  Sub 1660 1219 1660; Mul 1470 388 1660; Add 1356 1266 1470; Sub 1555 1280 1356; Mul 1412 401 1635;
  Mul 1115 397 1600; Mul 1418 48 254; Mul 1476 55 257; Sub 1418 1418 1476; Sub 77 77 1418; Mul 1418 19 77;
  Mul 1476 396 1222; Sub 1418 1418 1476; Mul 1476 398 29; Mul 1307 55 259; Mul 254 62 254; Sub 1307 1307 254;
  Sub 72 72 1307; Mul 1307 35 72; Add 1476 1476 1307; Sub 1418 1418 1476; Mul 1476 369 1418; Add 1115 1115 1476;
  Mul 1476 400 1395; Mul 396 396 29; Mul 77 35 77; Add 396 396 77; Mul 72 19 72; Mul 398 398 1222;
  Sub 72 72 398; Add 396 396 72; Mul 72 371 396; Add 1476 1476 72; Mul 72 402 75; Mul 257 62 257;
  Mul 259 48 259; Sub 257 257 259; Sub 341 341 257; Mul 257 318 341; Add 72 72 257; Add 1476 1476 72;
  Add 1115 1115 1476; Mul 1476 387 1128; Mul 72 390 1171; Add 1476 1476 72; Mul 72 363 1025; Mul 257 379 256;
  Add 72 72 257; Sub 1476 1476 72; Add 1115 1115 1476; Mul 1476 213 1115; Mul 1476 378 1476; Mul 72 384 1476;
  Add 257 1412 72; Mul 259 397 1464; Mul 398 358 1418; Add 259 259 398; Mul 398 400 63; Mul 77 364 396;
  Add 398 398 77; Mul 77 402 289; Mul 1307 310 341; Add 77 77 1307; Add 398 398 77; Add 259 259 398;
  Mul 398 405 1025; Mul 362 362 1600; Mul 77 369 99; Add 362 362 77; Mul 77 365 1395; Mul 1307 371 308;
  Add 77 77 1307; Mul 1307 367 75; Mul 254 318 313; Add 1307 1307 254; Add 77 77 1307; Add 362 362 77;
  Mul 77 379 362; Add 398 398 77; Mul 77 387 1329; Mul 1307 383 1171; Add 77 77 1307; Sub 398 398 77;
  Add 259 259 398; Mul 398 213 259; Mul 398 378 398; Mul 77 391 398; Mul 1307 406 1190; Add 254 77 1307;
  Mul 397 397 1577; Mul 1120 372 1418; Add 397 397 1120; Mul 400 400 1298; Mul 1120 377 396; Add 400 400 1120;
  Mul 402 402 46; Mul 1120 327 341; Add 402 402 1120; Add 400 400 402; Add 397 397 400; Mul 400 363 1329;
  Mul 402 383 256; Add 400 400 402; Mul 402 405 1128; Mul 1120 390 362; Add 402 402 1120; Sub 400 400 402;
  Add 397 397 400; Mul 400 213 397; Mul 400 378 400; Mul 402 381 400; Mul 1120 409 1269; Add 1150 402 1120;
  Add 72 72 1412; Add 1412 1150 72; Add 254 254 1412; Sub 1466 257 254].
Definition casadi_f0_942 : list instruction := [
  Add 1307 1307 77; Add 1120 1120 402; Add 257 1120 257; Add 1307 1307 257; Sub 72 72 1307; Add 1466 1466 72;
  Add 1470 1470 1266; Add 382 382 311; Sub 311 1470 382; Add 1466 1466 311; Sub 1555 1555 1466;
  Mul 1466 413 1464; Sub 311 99 1052; Mul 1266 358 311; Add 1466 1466 1266; Mul 1266 16 63; Mul 72 364 1221;
  Sub 1266 1266 72; Mul 72 15 289; Mul 402 310 1387; Add 72 72 402; Sub 1266 1266 72; Mul 72 419 1266;
  Mul 402 16 308; Mul 77 365 1221; Sub 402 402 77; Mul 77 367 1387; Mul 1165 15 313; Add 77 77 1165;
  Sub 402 402 77; Mul 77 418 402; Add 72 72 77; Mul 77 15 63; Mul 1165 364 1387; Add 77 77 1165;
  Mul 1165 16 289; Mul 1224 310 1221; Sub 1165 1165 1224; Add 77 77 1165; Mul 1165 422 77; Mul 365 365 1387;
  Mul 1224 15 308; Add 365 365 1224; Mul 1224 16 313; Mul 367 367 1221; Sub 1224 1224 367; Add 365 365 1224;
  Mul 1224 421 365; Add 1165 1165 1224; Add 72 72 1165; Add 1466 1466 72; Mul 72 213 1466; Mul 1165 439 72;
  Mul 1224 423 1600; Mul 367 16 1395; Mul 1584 371 1221; Sub 367 367 1584; Mul 1584 15 75; Mul 1558 318 1387;
  Add 1584 1584 1558; Sub 367 367 1584; Mul 1584 40 367; Mul 1558 15 1395; Mul 1270 371 1387;
  Add 1558 1558 1270; Mul 1270 16 75; Mul 1552 318 1221; Sub 1270 1270 1552; Add 1558 1558 1270;
  Mul 1270 42 1558; Add 1584 1584 1270; Add 1224 1224 1584; Mul 1584 372 1224; Mul 1270 424 1577;
  Add 1584 1584 1270; Mul 1270 40 1600; Mul 1552 14 367; Mul 1062 18 1558; Add 1552 1552 1062;
  Add 1270 1270 1552; Mul 1552 429 1270; Mul 1062 16 1298; Mul 1147 377 1221; Sub 1062 1062 1147;
  Mul 1147 15 46; Mul 1375 327 1387; Add 1147 1147 1375; Sub 1062 1062 1147; Mul 1147 428 1062;
  Add 1552 1552 1147; Add 1584 1584 1552; Mul 1552 43 1266; Mul 1147 431 1464; Sub 1552 1552 1147;
  Add 1584 1584 1552; Mul 1552 198 1577; Mul 1147 25 1298; Mul 1375 32 46; Add 1147 1147 1375;
  Add 1552 1552 1147; Add 1552 1025 1552; Mul 1147 433 1577; Mul 1375 26 1062; Mul 1181 15 1298;
  Mul 1540 377 1387; Add 1181 1181 1540; Mul 1540 16 46; Mul 1563 327 1221; Sub 1540 1540 1563;
  Add 1181 1181 1540; Mul 1540 28 1181; Add 1375 1375 1540; Add 1147 1147 1375; Add 1147 1552 1147;
  Mul 1375 430 1147; Mul 1375 438 1375; Mul 1540 198 1600; Mul 1563 25 1395; Mul 1544 32 75; Add 1563 1563 1544;
  Add 1540 1540 1563; Add 1540 1329 1540; Mul 1563 433 1600; Mul 1544 26 367; Mul 1170 28 1558;
  Add 1544 1544 1170; Add 1563 1563 1544; Add 1563 1540 1563; Mul 435 435 1563; Add 1375 1375 435;
  Sub 1375 1584 1375; Mul 435 420 1375; Add 1544 1165 435; Mul 1170 413 1577; Mul 1283 372 311;
  Add 1170 1170 1283; Mul 1283 419 1062; Mul 1654 429 402; Add 1283 1283 1654; Mul 1654 422 1181;
  Mul 1549 436 365; Add 1654 1654 1549; Add 1283 1283 1654; Add 1170 1170 1283; Mul 1283 213 1170;
  Mul 1654 447 1283; Mul 1549 358 1224; Mul 1527 424 1464; Add 1549 1549 1527].
Definition casadi_f0_943 : list instruction := [
  Mul 1527 418 1270; Mul 1217 428 1266; Add 1527 1527 1217; Add 1549 1549 1527; Mul 1527 43 1062;
  Mul 1217 431 1577; Sub 1527 1527 1217; Sub 1549 1549 1527; Mul 1527 198 1464; Mul 1217 25 63; Mul 1664 32 289;
  Add 1217 1217 1664; Add 1527 1527 1217; Add 1527 1128 1527; Mul 1217 433 1464; Mul 1664 26 1266;
  Mul 1570 28 77; Add 1664 1664 1570; Add 1217 1217 1664; Add 1217 1527 1217; Mul 1664 430 1217;
  Mul 1570 438 1664; Mul 1151 446 1563; Add 1570 1570 1151; Sub 1570 1549 1570; Mul 1151 442 1570;
  Add 1102 1654 1151; Sub 1578 1544 1102; Mul 1415 455 1563; Mul 1517 450 1600; Mul 1196 25 313;
  Mul 1520 32 308; Sub 1196 1196 1520; Sub 1418 1418 1196; Mul 1196 369 1418; Add 1517 1517 1196;
  Mul 1196 453 367; Mul 1520 32 99; Mul 313 198 313; Sub 1520 1520 313; Sub 396 396 1520; Mul 1520 16 396;
  Mul 313 452 1221; Sub 1520 1520 313; Mul 313 454 1387; Mul 308 198 308; Mul 99 25 99; Sub 308 308 99;
  Sub 341 341 308; Mul 308 15 341; Add 313 313 308; Sub 1520 1520 313; Mul 313 425 1520; Add 1196 1196 313;
  Mul 313 456 1558; Mul 452 452 1387; Mul 396 15 396; Add 452 452 396; Mul 341 16 341; Mul 454 454 1221;
  Sub 341 341 454; Add 452 452 341; Mul 341 427 452; Add 313 313 341; Add 1196 1196 313; Add 1517 1517 1196;
  Mul 1196 441 1527; Mul 313 444 1170; Add 1196 1196 313; Mul 313 417 1552; Mul 341 432 1466; Add 313 313 341;
  Sub 1196 1196 313; Add 1517 1517 1196; Mul 1196 213 1517; Mul 1196 430 1196; Mul 313 438 1196;
  Add 341 1415 313; Mul 454 450 1464; Mul 396 358 1418; Add 454 454 396; Mul 396 453 1266; Mul 308 418 1520;
  Add 396 396 308; Mul 77 456 77; Mul 421 421 452; Add 77 77 421; Add 396 396 77; Add 454 454 396;
  Mul 396 459 1552; Mul 413 413 1600; Mul 311 369 311; Add 413 413 311; Mul 419 419 367; Mul 402 425 402;
  Add 419 419 402; Mul 422 422 1558; Mul 427 427 365; Add 422 422 427; Add 419 419 422; Add 413 413 419;
  Mul 419 432 413; Add 396 396 419; Mul 419 441 1540; Mul 422 437 1170; Add 419 419 422; Sub 396 396 419;
  Add 454 454 396; Mul 396 213 454; Mul 396 430 396; Mul 419 445 396; Mul 422 460 1217; Add 427 419 422;
  Mul 450 450 1577; Mul 1418 372 1418; Add 450 450 1418; Mul 453 453 1062; Mul 1520 429 1520; Add 453 453 1520;
  Mul 456 456 1181; Mul 436 436 452; Add 456 456 436; Add 453 453 456; Add 450 450 453; Mul 453 417 1540;
  Mul 456 437 1466; Add 453 453 456; Mul 456 459 1527; Mul 436 444 413; Add 456 456 436; Sub 453 453 456;
  Add 450 450 453; Mul 453 213 450; Mul 453 430 453; Mul 456 434 453; Mul 436 463 1147; Add 452 456 436;
  Add 313 313 1415; Add 1415 452 313; Add 427 427 1415; Sub 1520 341 427; Add 422 422 419; Add 436 436 456;
  Add 341 436 341; Add 422 422 341; Sub 313 313 422; Add 1520 1520 313; Add 1151 1151 1654; Add 435 435 1165].
Definition casadi_f0_944 : list instruction := [
  Sub 1165 1151 435; Add 1520 1520 1165; Sub 1578 1578 1520; Add 1555 1555 1578; Add 1031 1031 1555;
  Add 1330 1330 1031; Add 192 192 1330; Mul 192 0 192; Mul 235 235 1374; Add 192 192 235; Mul 261 261 149;
  Mul 262 262 27; Add 261 261 262; Mul 315 315 71; Mul 316 316 76; Add 315 315 316; Mul 1519 369 1519;
  Mul 370 370 1600; Add 1519 1519 370; Mul 371 371 1701; Mul 375 375 1395; Add 371 371 375; Add 1519 1519 371;
  Mul 1224 369 1224; Mul 424 424 1600; Add 1224 1224 424; Mul 425 425 1270; Mul 428 428 367; Add 425 425 428;
  Add 1224 1224 425; Add 425 1519 1224; Sub 428 1190 1217; Mul 480 480 428; Sub 1270 1269 1147;
  Mul 1197 1197 1270; Add 424 480 1197; Mul 424 20 424; Add 425 425 424; Add 424 315 425; Mul 371 485 1190;
  Mul 375 50 1217; Add 371 371 375; Sub 375 1085 371; Mul 487 487 375; Mul 1701 485 1269; Mul 370 50 1147;
  Add 1701 1701 370; Sub 370 38 1701; Mul 1286 1286 370; Add 316 487 1286; Mul 316 37 316; Add 424 424 316;
  Add 316 261 424; Mul 71 493 1085; Mul 262 83 371; Add 71 71 262; Sub 262 95 71; Mul 495 495 262;
  Mul 149 493 38; Mul 235 83 1701; Add 149 149 235; Sub 235 146 149; Mul 1294 1294 235; Add 1330 495 1294;
  Mul 1330 80 1330; Add 316 316 1330; Mul 237 237 10; Mul 173 113 173; Sub 237 237 173; Sub 173 316 237;
  Mul 1330 501 146; Mul 1031 104 149; Add 1330 1330 1031; Sub 1031 202 1330; Mul 1299 1299 1031;
  Mul 1520 501 95; Mul 1165 104 71; Add 1520 1520 1165; Add 1165 169 1520; Mul 503 503 1165; Sub 1654 1299 503;
  Mul 1654 100 1654; Add 173 173 1654; Mul 173 508 173; Mul 1654 216 187; Mul 313 219 207; Sub 1654 1654 313;
  Mul 313 215 190; Mul 456 227 1043; Add 313 313 456; Add 1654 1654 313; Mul 500 500 1654; Add 173 173 500;
  Add 500 1219 1549; Mul 428 20 428; Mul 313 512 428; Sub 456 1635 1563; Mul 419 511 456; Add 313 313 419;
  Sub 500 500 313; Add 313 112 500; Mul 375 37 375; Mul 419 516 375; Mul 485 485 1635; Mul 50 50 1563;
  Add 485 485 50; Sub 50 52 485; Mul 1418 514 50; Add 419 419 1418; Sub 313 313 419; Add 419 121 313;
  Mul 262 80 262; Mul 1418 520 262; Mul 493 493 52; Mul 83 83 485; Add 493 493 83; Sub 83 111 493;
  Mul 365 518 83; Add 1418 1418 365; Sub 419 419 1418; Add 1418 12 419; Mul 1165 100 1165; Mul 365 524 1165;
  Mul 501 501 111; Mul 104 104 493; Add 501 501 104; Add 104 162 501; Mul 1558 522 104; Add 365 365 1558;
  Add 1418 1418 365; Mul 365 526 1418; Mul 221 221 10; Mul 205 113 205; Add 221 221 205; Mul 208 114 208;
  Mul 218 218 84; Sub 208 208 218; Add 221 221 208; Mul 208 216 221; Mul 218 525 207; Sub 208 208 218;
  Mul 218 521 208; Add 365 365 218; Add 218 1452 1584; Mul 205 20 1270; Mul 512 512 205; Mul 529 529 456;
  Add 512 512 529; Sub 218 218 512].
Definition casadi_f0_945 : list instruction := [
  Add 512 73 218; Mul 529 37 370; Mul 516 516 529; Mul 531 531 50; Add 516 516 531; Sub 512 512 516;
  Add 516 1073 512; Mul 531 80 235; Mul 520 520 531; Mul 533 533 83; Add 520 520 533; Sub 516 516 520;
  Add 520 167 516; Mul 533 100 1031; Mul 524 524 533; Mul 535 535 104; Sub 524 524 535; Sub 520 520 524;
  Mul 524 536 520; Mul 535 215 221; Mul 533 525 1043; Add 535 535 533; Mul 533 534 535; Add 524 524 533;
  Add 365 365 524; Sub 173 173 365; Mul 365 120 1520; Mul 524 527 169; Sub 365 365 524; Mul 524 539 365;
  Mul 533 120 501; Mul 531 527 162; Sub 533 533 531; Mul 531 526 533; Mul 529 538 208; Add 531 531 529;
  Mul 529 508 365; Mul 205 537 1654; Add 529 529 205; Add 531 531 529; Mul 529 540 221; Mul 205 214 207;
  Mul 1558 525 205; Sub 529 529 1558; Sub 531 531 529; Mul 531 141 531; Mul 1558 537 531; Add 524 524 1558;
  Mul 527 527 202; Mul 120 120 1330; Add 527 527 120; Mul 120 546 527; Mul 1558 544 221; Mul 214 214 1043;
  Mul 402 525 214; Add 1558 1558 402; Mul 402 508 527; Mul 311 543 1654; Add 402 402 311; Mul 311 536 533;
  Mul 77 538 535; Add 311 311 77; Add 402 402 311; Sub 402 1558 402; Mul 402 141 402; Mul 311 543 402;
  Add 120 120 311; Sub 524 524 120; Add 173 173 524; Mul 524 553 174; Mul 238 238 186; Mul 236 236 195;
  Mul 195 144 207; Sub 236 236 195; Add 238 238 236; Mul 224 224 238; Mul 236 542 186; Add 224 224 236;
  Mul 144 144 186; Mul 549 549 207; Sub 144 144 549; Mul 549 216 144; Mul 186 548 207; Sub 549 549 186;
  Add 224 224 549; Mul 1334 1334 169; Mul 1336 1336 162; Add 549 1334 1336; Mul 549 212 549; Sub 549 224 549;
  Mul 186 249 549; Add 236 524 186; Mul 195 556 157; Mul 220 220 238; Mul 542 542 199; Sub 220 220 542;
  Mul 144 215 144; Mul 548 548 1043; Add 144 144 548; Sub 220 220 144; Mul 241 241 202; Mul 70 225 70;
  Sub 241 241 70; Sub 241 220 241; Mul 70 244 241; Add 144 195 70; Sub 236 236 144; Mul 144 242 204;
  Mul 548 223 162; Sub 144 144 548; Mul 1342 1342 202; Sub 1334 1342 1334; Mul 1334 212 1334; Sub 1334 1334 237;
  Mul 548 249 1334; Mul 542 551 174; Add 199 548 542; Mul 238 560 159; Mul 120 213 221; Mul 311 243 120;
  Add 77 238 311; Sub 199 199 77; Add 199 144 199; Sub 236 236 199; Sub 199 237 224; Mul 77 219 199;
  Mul 557 557 187; Add 77 77 557; Mul 557 227 220; Mul 421 555 190; Add 557 557 421; Add 77 77 557;
  Mul 557 525 12; Mul 421 239 221; Add 557 557 421; Add 77 77 557; Mul 557 340 202; Mul 421 231 190;
  Mul 308 227 169; Sub 421 421 308; Mul 308 219 202; Mul 99 225 187; Add 308 308 99; Sub 421 421 308;
  Mul 421 212 421; Mul 308 225 421; Add 557 557 308; Mul 308 242 187; Mul 99 219 162].
Definition casadi_f0_946 : list instruction := [
  Sub 308 308 99; Mul 99 231 221; Mul 1225 525 169; Sub 99 99 1225; Sub 308 308 99; Sub 308 197 308;
  Mul 308 212 308; Mul 99 242 308; Mul 1225 559 162; Sub 99 99 1225; Add 557 557 99; Sub 77 77 557;
  Mul 77 213 77; Sub 236 236 77; Mul 557 567 217; Mul 260 260 109; Mul 263 263 60; Mul 99 127 207;
  Sub 263 263 99; Add 260 260 263; Mul 265 265 260; Mul 263 547 109; Add 265 265 263; Mul 127 127 109;
  Mul 268 268 60; Mul 563 563 207; Sub 268 268 563; Add 127 127 268; Mul 268 216 127; Mul 563 562 207;
  Sub 268 268 563; Add 265 265 268; Mul 1138 1138 95; Mul 1357 1357 111; Add 268 1138 1357; Mul 268 269 268;
  Add 268 265 268; Mul 563 258 268; Add 60 557 563; Mul 109 570 130; Mul 253 253 260; Mul 547 547 1642;
  Add 253 253 547; Mul 127 215 127; Mul 562 562 1043; Add 127 127 562; Sub 253 253 127; Mul 135 135 27;
  Sub 253 253 135; Mul 267 271 267; Mul 283 283 146; Add 267 267 283; Sub 267 253 267; Mul 283 279 267;
  Add 135 109 283; Sub 60 60 135; Mul 135 300 111; Mul 27 275 291; Add 127 135 27; Mul 562 271 132;
  Mul 547 292 146; Add 1642 562 547; Add 127 127 1642; Mul 1366 1366 146; Add 1138 1138 1366; Mul 1138 269 1138;
  Add 1138 261 1138; Mul 1642 258 1138; Mul 260 565 217; Add 263 1642 260; Mul 99 574 142; Mul 1225 213 78;
  Mul 1443 284 1225; Add 1688 99 1443; Sub 263 263 1688; Add 127 127 263; Sub 60 60 127; Mul 571 571 247;
  Add 127 265 261; Mul 263 255 127; Sub 571 571 263; Mul 263 278 253; Mul 1688 569 137; Add 263 263 1688;
  Add 571 571 263; Mul 263 296 121; Mul 1688 280 78; Add 263 263 1688; Add 571 571 263; Mul 263 471 146;
  Mul 1688 278 95; Mul 1571 282 137; Add 1688 1688 1571; Mul 1571 255 146; Mul 1601 271 247; Add 1571 1571 1601;
  Sub 1688 1688 1571; Sub 1688 139 1688; Mul 1688 269 1688; Mul 1571 271 1688; Add 263 263 1571;
  Mul 1571 573 111; Mul 1601 255 111; Mul 1656 275 247; Add 1601 1601 1656; Mul 1656 296 95; Mul 1442 282 78;
  Add 1656 1656 1442; Sub 1601 1601 1656; Sub 1601 41 1601; Mul 1601 269 1601; Mul 1656 275 1601;
  Add 1571 1571 1656; Sub 263 263 1571; Add 571 571 263; Mul 571 213 571; Sub 60 60 571; Mul 263 581 288;
  Mul 314 314 264; Mul 317 317 46; Mul 1571 128 207; Sub 317 317 1571; Add 314 314 317; Mul 319 319 314;
  Mul 317 561 264; Add 319 319 317; Mul 128 128 264; Mul 322 322 46; Mul 577 577 207; Sub 322 322 577;
  Add 128 128 322; Mul 322 216 128; Mul 577 576 207; Sub 322 322 577; Add 319 319 322; Mul 1379 1379 1085;
  Mul 1381 1381 52; Add 322 1379 1381; Mul 322 323 322; Add 322 319 322; Mul 577 312 322; Add 264 263 577;
  Mul 317 584 67; Mul 304 304 314; Mul 561 561 44; Add 304 304 561; Mul 128 215 128; Mul 576 576 1043;
  Add 128 128 576].
Definition casadi_f0_947 : list instruction := [
  Sub 304 304 128; Mul 131 131 76; Sub 304 304 131; Mul 34 325 34; Mul 337 337 38; Add 34 34 337; Sub 34 304 34;
  Mul 337 333 34; Add 131 317 337; Sub 264 264 131; Mul 131 354 52; Mul 76 329 1106; Add 128 131 76;
  Mul 576 325 116; Mul 561 346 38; Add 44 576 561; Add 128 128 44; Mul 1390 1390 38; Add 1379 1379 1390;
  Mul 1379 323 1379; Add 1379 315 1379; Mul 44 312 1379; Mul 314 579 288; Add 1571 44 314; Mul 1656 588 321;
  Mul 1442 213 1420; Mul 1675 338 1442; Add 1103 1656 1675; Sub 1571 1571 1103; Add 128 128 1571;
  Sub 264 264 128; Mul 585 585 152; Add 128 319 315; Mul 1571 309 128; Sub 585 585 1571; Mul 1571 332 304;
  Mul 1103 583 125; Add 1571 1571 1103; Add 585 585 1571; Mul 1571 349 112; Mul 1103 334 1420;
  Add 1571 1571 1103; Add 585 585 1571; Mul 1571 473 38; Mul 1103 332 1085; Mul 1696 336 125;
  Add 1103 1103 1696; Mul 1696 309 38; Mul 1076 325 152; Add 1696 1696 1076; Sub 1103 1103 1696;
  Sub 1103 1041 1103; Mul 1103 323 1103; Mul 1696 325 1103; Add 1571 1571 1696; Mul 1696 587 52;
  Mul 1076 309 52; Mul 1243 329 152; Add 1076 1076 1243; Mul 1243 349 1085; Mul 1698 336 1420;
  Add 1243 1243 1698; Sub 1076 1076 1243; Sub 1076 342 1076; Mul 1076 323 1076; Mul 1243 329 1076;
  Add 1696 1696 1243; Sub 1571 1571 1696; Add 585 585 1571; Mul 585 213 585; Sub 264 264 585; Mul 1571 594 345;
  Mul 368 368 1577; Mul 1696 39 1298; Mul 373 373 46; Add 1696 1696 373; Add 368 368 1696; Mul 1696 372 368;
  Mul 373 575 1577; Add 1696 1696 373; Mul 39 39 1577; Mul 376 376 1298; Add 39 39 376; Mul 377 377 39;
  Mul 1298 590 1298; Add 377 377 1298; Add 1696 1696 377; Mul 1404 1404 1190; Mul 1405 1405 1635;
  Add 377 1404 1405; Mul 377 378 377; Add 377 1696 377; Mul 1298 366 377; Add 376 1571 1298; Mul 373 597 1205;
  Mul 368 358 368; Mul 575 575 1464; Add 368 368 575; Mul 364 364 39; Mul 590 590 63; Add 364 364 590;
  Add 368 368 364; Mul 69 69 1395; Add 368 368 69; Mul 1613 381 1613; Mul 392 392 1269; Add 1613 1613 392;
  Sub 1613 368 1613; Mul 392 388 1613; Add 69 373 392; Sub 376 376 69; Mul 69 409 1635; Mul 1395 384 400;
  Add 364 69 1395; Mul 590 381 1476; Mul 63 401 1269; Add 39 590 63; Add 364 364 39; Mul 1414 1414 1269;
  Add 1404 1404 1414; Mul 1404 378 1404; Add 1404 1519 1404; Mul 39 366 1404; Mul 575 592 345; Add 1243 39 575;
  Mul 1698 601 1660; Mul 1491 213 362; Mul 1361 393 1491; Add 1384 1698 1361; Sub 1243 1243 1384;
  Add 364 364 1243; Sub 376 376 364; Mul 598 598 256; Add 364 1696 1519; Mul 1243 363 364; Sub 598 598 1243;
  Mul 1243 387 368; Mul 1384 596 1171; Add 1243 1243 1384; Add 598 598 1243; Mul 1243 405 1219;
  Mul 1384 389 362; Add 1243 1243 1384; Add 598 598 1243; Mul 1243 475 1269; Mul 1384 387 1190;
  Mul 1593 391 1171; Add 1384 1384 1593; Mul 1593 363 1269].
Definition casadi_f0_948 : list instruction := [
  Mul 1162 381 256; Add 1593 1593 1162; Sub 1384 1384 1593; Sub 1384 1115 1384; Mul 1384 378 1384;
  Mul 1593 381 1384; Add 1243 1243 1593; Mul 1593 600 1635; Mul 1162 363 1635; Mul 1096 384 256;
  Add 1162 1162 1096; Mul 1096 405 1190; Mul 1130 391 362; Add 1096 1096 1130; Sub 1162 1162 1096;
  Sub 1162 397 1162; Mul 1162 378 1162; Mul 1096 384 1162; Add 1593 1593 1096; Sub 1243 1243 1593;
  Add 598 598 1243; Mul 598 213 598; Sub 376 376 598; Mul 1243 607 72; Mul 423 423 1577; Mul 1593 40 1062;
  Mul 42 42 1181; Add 1593 1593 42; Add 423 423 1593; Mul 1593 372 423; Mul 42 589 1577; Add 1593 1593 42;
  Mul 40 40 1577; Mul 14 14 1062; Mul 18 18 1181; Add 14 14 18; Add 40 40 14; Mul 429 429 40; Mul 1062 603 1062;
  Add 429 429 1062; Add 1593 1593 429; Mul 1428 1428 1217; Mul 1264 1264 1563; Add 429 1428 1264;
  Mul 429 430 429; Add 429 1593 429; Mul 1062 420 429; Add 14 1243 1062; Mul 18 610 1283; Mul 423 358 423;
  Mul 589 589 1464; Add 423 423 589; Mul 418 418 40; Mul 603 603 1266; Add 418 418 603; Add 423 423 418;
  Mul 43 43 367; Mul 431 431 1600; Sub 43 43 431; Add 423 423 43; Mul 1664 434 1664; Mul 446 446 1147;
  Add 1664 1664 446; Sub 1664 423 1664; Mul 446 442 1664; Add 43 18 446; Sub 14 14 43; Mul 43 463 1563;
  Mul 431 438 453; Add 367 43 431; Mul 418 434 1196; Mul 603 455 1147; Add 1266 418 603; Add 367 367 1266;
  Mul 1437 1437 1147; Add 1428 1428 1437; Mul 1428 430 1428; Add 1428 1224 1428; Mul 1266 420 1428;
  Mul 40 605 72; Add 589 1266 40; Mul 1181 614 1570; Mul 42 213 413; Mul 1096 447 42; Add 1130 1181 1096;
  Sub 589 589 1130; Add 367 367 589; Sub 14 14 367; Mul 367 13 1466; Add 589 1593 1224; Mul 1130 417 589;
  Sub 367 367 1130; Mul 1130 441 423; Mul 1386 609 1170; Add 1130 1130 1386; Add 367 367 1130;
  Mul 1130 459 1549; Mul 1386 443 413; Add 1130 1130 1386; Add 367 367 1130; Mul 1130 477 1147;
  Mul 1386 441 1217; Mul 1599 445 1170; Add 1386 1386 1599; Mul 1599 417 1147; Mul 1157 434 1466;
  Add 1599 1599 1157; Sub 1386 1386 1599; Sub 1386 1517 1386; Mul 1386 430 1386; Mul 1599 434 1386;
  Add 1130 1130 1599; Mul 1599 611 1563; Mul 1157 417 1563; Mul 1692 438 1466; Add 1157 1157 1692;
  Mul 1692 459 1217; Mul 1111 445 413; Add 1692 1692 1111; Sub 1157 1157 1692; Sub 1157 450 1157;
  Mul 1157 430 1157; Mul 1692 438 1157; Add 1599 1599 1692; Sub 1130 1130 1599; Add 367 367 1130;
  Mul 367 213 367; Sub 14 14 367; Add 376 376 14; Add 264 264 376; Add 60 60 264; Add 236 236 60;
  Mul 236 216 236; Mul 554 554 207; Sub 236 236 554; Mul 554 242 177; Mul 1130 230 162; Sub 554 554 1130;
  Mul 1130 560 115; Mul 1599 248 120; Add 1692 1130 1599; Mul 1334 244 1334; Mul 551 551 157; Add 1111 1334 551;
  Sub 1692 1692 1111; Sub 1692 554 1692; Mul 1111 556 174; Mul 1481 249 241; Add 1694 1111 1481].
Definition casadi_f0_949 : list instruction := [
  Mul 1195 558 157; Sub 1342 1342 1336; Mul 1342 212 1342; Add 1342 199 1342; Mul 1336 244 1342;
  Add 1372 1195 1336; Sub 1694 1694 1372; Add 1692 1692 1694; Mul 1694 219 220; Mul 555 555 187;
  Add 1694 1694 555; Mul 555 227 224; Mul 550 550 190; Add 555 555 550; Add 1694 1694 555; Mul 555 525 167;
  Mul 550 246 221; Add 555 555 550; Add 1694 1694 555; Mul 555 231 421; Mul 340 340 169; Sub 555 555 340;
  Mul 340 525 202; Mul 550 225 221; Add 340 340 550; Mul 550 242 190; Mul 1372 227 162; Sub 550 550 1372;
  Sub 340 340 550; Add 340 49 340; Mul 340 212 340; Mul 550 242 340; Mul 1372 616 162; Sub 550 550 1372;
  Sub 555 555 550; Add 1694 1694 555; Mul 1694 213 1694; Add 1692 1692 1694; Mul 555 570 217; Mul 550 258 267;
  Add 1372 555 550; Mul 1089 572 130; Add 1366 1366 1357; Mul 1366 269 1366; Sub 1366 1366 127;
  Mul 1357 279 1366; Add 1105 1089 1357; Sub 1372 1372 1105; Mul 1105 297 111; Mul 1669 275 136;
  Add 1255 1105 1669; Mul 1156 282 132; Mul 292 292 95; Add 1536 1156 292; Add 1255 1255 1536; Mul 1536 574 228;
  Mul 1215 276 1225; Add 1028 1536 1215; Mul 1138 279 1138; Mul 565 565 130; Add 1248 1138 565;
  Sub 1028 1028 1248; Add 1255 1255 1028; Sub 1372 1372 1255; Mul 1255 255 253; Mul 569 569 247;
  Add 1255 1255 569; Mul 569 278 265; Mul 564 564 137; Add 569 569 564; Add 1255 1255 569; Mul 569 296 1073;
  Mul 564 266 78; Add 569 569 564; Add 1255 1255 569; Mul 569 617 111; Mul 564 296 146; Mul 1028 271 78;
  Add 564 564 1028; Mul 1028 278 111; Mul 1248 275 137; Add 1028 1028 1248; Sub 564 564 1028; Sub 564 287 564;
  Mul 564 269 564; Mul 1028 275 564; Add 569 569 1028; Mul 471 471 95; Mul 1028 282 1688; Add 471 471 1028;
  Sub 569 569 471; Add 1255 1255 569; Mul 1255 213 1255; Add 1372 1372 1255; Mul 569 584 288; Mul 471 312 34;
  Add 1028 569 471; Mul 1248 586 67; Add 1390 1390 1381; Mul 1390 323 1390; Sub 1390 1390 128;
  Mul 1381 333 1390; Add 1194 1248 1381; Sub 1028 1028 1194; Mul 1194 351 52; Mul 1580 329 155;
  Add 1662 1194 1580; Mul 1319 336 116; Mul 346 346 1085; Add 1589 1319 346; Add 1662 1662 1589;
  Mul 1589 588 110; Mul 1230 330 1442; Add 1385 1589 1230; Mul 1379 333 1379; Mul 579 579 67; Add 1146 1379 579;
  Sub 1385 1385 1146; Add 1662 1662 1385; Sub 1028 1028 1662; Mul 1662 309 304; Mul 583 583 152;
  Add 1662 1662 583; Mul 583 332 319; Mul 578 578 125; Add 583 583 578; Add 1662 1662 583; Mul 583 349 73;
  Mul 578 320 1420; Add 583 583 578; Add 1662 1662 583; Mul 583 619 52; Mul 578 349 38; Mul 1385 325 1420;
  Add 578 578 1385; Mul 1385 332 52; Mul 1146 329 125; Add 1385 1385 1146; Sub 578 578 1385; Sub 578 1684 578;
  Mul 578 323 578; Mul 1385 329 578; Add 583 583 1385; Mul 473 473 1085; Mul 1385 336 1103; Add 473 473 1385;
  Sub 583 583 473; Add 1662 1662 583; Mul 1662 213 1662].
Definition casadi_f0_950 : list instruction := [
  Add 1028 1028 1662; Mul 583 597 345; Mul 473 366 1613; Add 1385 583 473; Mul 1146 599 1205;
  Add 1414 1414 1405; Mul 1414 378 1414; Sub 1414 1414 364; Mul 1405 388 1414; Add 1465 1146 1405;
  Sub 1385 1385 1465; Mul 1465 406 1635; Mul 1706 384 398; Add 1091 1465 1706; Mul 1234 391 1476;
  Mul 401 401 1190; Add 1172 1234 401; Add 1091 1091 1172; Mul 1172 601 1282; Mul 1673 385 1491;
  Add 1136 1172 1673; Mul 1404 388 1404; Mul 592 592 1205; Add 1492 1404 592; Sub 1136 1136 1492;
  Add 1091 1091 1136; Sub 1385 1385 1091; Mul 1091 363 368; Mul 596 596 256; Add 1091 1091 596;
  Mul 596 387 1696; Mul 591 591 1171; Add 596 596 591; Add 1091 1091 596; Mul 596 405 1452; Mul 591 374 362;
  Add 596 596 591; Add 1091 1091 596; Mul 596 621 1635; Mul 591 405 1269; Mul 1136 381 362; Add 591 591 1136;
  Mul 1136 387 1635; Mul 1492 384 1171; Add 1136 1136 1492; Sub 591 591 1136; Sub 591 259 591; Mul 591 378 591;
  Mul 1136 384 591; Add 596 596 1136; Mul 475 475 1190; Mul 1136 391 1384; Add 475 475 1136; Sub 596 596 475;
  Add 1091 1091 596; Mul 1091 213 1091; Add 1385 1385 1091; Mul 596 610 72; Mul 475 420 1664; Add 1136 596 475;
  Mul 1492 612 1283; Add 1437 1437 1264; Mul 1437 430 1437; Sub 1437 1437 589; Mul 1264 442 1437;
  Add 1376 1492 1264; Sub 1136 1136 1376; Mul 1376 460 1563; Mul 1668 438 396; Add 1090 1376 1668;
  Mul 1419 445 1196; Mul 455 455 1217; Add 1532 1419 455; Add 1090 1090 1532; Mul 1532 614 1375;
  Mul 1036 439 42; Add 1681 1532 1036; Mul 1428 442 1428; Mul 605 605 1283; Add 1407 1428 605;
  Sub 1681 1681 1407; Add 1090 1090 1681; Sub 1136 1136 1090; Mul 1090 417 423; Mul 1681 609 1466;
  Add 1090 1090 1681; Mul 1681 441 1593; Mul 1407 604 1170; Add 1681 1681 1407; Add 1090 1090 1681;
  Mul 1681 459 1584; Mul 1407 426 413; Add 1681 1681 1407; Add 1090 1090 1681; Mul 1681 623 1563;
  Mul 1407 459 1147; Mul 1139 434 413; Add 1407 1407 1139; Mul 1139 441 1563; Mul 1074 438 1170;
  Add 1139 1139 1074; Sub 1407 1407 1139; Sub 1407 454 1407; Mul 1407 430 1407; Mul 1139 438 1407;
  Add 1681 1681 1139; Mul 477 477 1217; Mul 1139 445 1386; Add 477 477 1139; Sub 1681 1681 477;
  Add 1090 1090 1681; Mul 1090 213 1090; Add 1136 1136 1090; Add 1385 1385 1136; Add 1028 1028 1385;
  Add 1372 1372 1028; Add 1692 1692 1372; Mul 1692 215 1692; Mul 613 613 1043; Add 1692 1692 613;
  Sub 236 236 1692; Mul 1692 212 174; Mul 613 242 1692; Mul 1681 624 162; Sub 613 613 1681; Mul 1681 212 120;
  Mul 477 231 1681; Mul 1139 626 169; Sub 477 477 1139; Add 477 204 477; Sub 613 613 477; Mul 477 213 308;
  Add 1139 613 477; Mul 1074 269 217; Mul 1667 275 1074; Mul 1649 629 111; Add 1226 1667 1649; Mul 1425 631 95;
  Mul 1030 269 1225; Mul 1179 282 1030; Add 1185 1425 1179; Add 1185 291 1185; Sub 1226 1226 1185;
  Mul 1185 213 1601; Add 1114 1226 1185; Mul 1288 323 288; Mul 1499 329 1288; Mul 1559 634 52;
  Add 1333 1499 1559].
Definition casadi_f0_951 : list instruction := [
  Mul 1463 636 1085; Mul 1308 323 1442; Mul 1176 336 1308; Add 1620 1463 1176; Add 1620 1106 1620;
  Sub 1333 1333 1620; Mul 1620 213 1076; Add 1509 1333 1620; Mul 1410 378 345; Mul 1695 384 1410;
  Mul 1296 639 1635; Add 1595 1695 1296; Mul 1691 641 1190; Mul 1223 378 1491; Mul 1401 391 1223;
  Add 1497 1691 1401; Add 1497 400 1497; Sub 1595 1595 1497; Mul 1497 213 1162; Add 1251 1595 1497;
  Mul 1158 430 72; Mul 1444 438 1158; Mul 1279 644 1563; Add 1406 1444 1279; Mul 1588 646 1217; Mul 1648 430 42;
  Mul 1053 445 1648; Add 1468 1588 1053; Add 1468 453 1468; Sub 1406 1406 1468; Mul 1468 213 1157;
  Add 1320 1406 1468; Add 1251 1251 1320; Add 1509 1509 1251; Add 1114 1114 1509; Add 1139 1139 1114;
  Mul 1139 540 1139; Mul 628 628 205; Sub 1139 1139 628; Mul 628 212 157; Mul 1084 242 628; Mul 1326 650 162;
  Sub 1084 1084 1326; Mul 1326 626 202; Mul 1535 225 1681; Add 1326 1326 1535; Add 1326 177 1326;
  Sub 1084 1084 1326; Mul 1326 213 340; Add 1535 1084 1326; Mul 1380 631 146; Mul 1093 271 1030;
  Add 1267 1380 1093; Sub 1267 136 1267; Mul 1467 269 130; Mul 1206 275 1467; Mul 1189 655 111;
  Add 1455 1206 1189; Add 1267 1267 1455; Mul 1455 213 564; Sub 1322 1267 1455; Mul 1237 636 38;
  Mul 1110 325 1308; Add 1511 1237 1110; Sub 1511 155 1511; Mul 1159 323 67; Mul 1174 329 1159; Mul 1360 659 52;
  Add 1542 1174 1360; Add 1511 1511 1542; Mul 1542 213 578; Sub 1261 1511 1542; Mul 1704 641 1269;
  Mul 1450 381 1223; Add 1597 1704 1450; Sub 1597 398 1597; Mul 1175 378 1205; Mul 1480 384 1175;
  Mul 1347 663 1635; Add 1646 1480 1347; Add 1597 1597 1646; Mul 1646 213 591; Sub 1565 1597 1646;
  Mul 1538 646 1147; Mul 1521 434 1648; Add 1402 1538 1521; Sub 1402 396 1402; Mul 1075 430 1283;
  Mul 1447 438 1075; Mul 1518 667 1563; Add 1439 1447 1518; Add 1402 1402 1439; Mul 1439 213 1407;
  Sub 1140 1402 1439; Add 1565 1565 1140; Add 1261 1261 1565; Add 1322 1322 1261; Add 1535 1535 1322;
  Mul 1535 544 1535; Mul 653 653 214; Add 1535 1535 653; Add 1139 1139 1535; Sub 236 236 1139; Add 173 173 236;
  Mul 173 1 173; Mul 509 509 1377; Add 173 173 509; Add 192 192 173; Mul 173 602 419; Mul 509 216 78;
  Mul 236 296 207; Sub 509 509 236; Mul 236 517 509; Add 173 173 236; Mul 236 670 516; Mul 1139 215 78;
  Mul 1535 296 1043; Add 1139 1139 1535; Mul 1535 532 1139; Add 236 236 1535; Add 173 173 236; Mul 316 671 316;
  Mul 236 216 247; Mul 1535 255 207; Sub 236 236 1535; Mul 1535 215 137; Mul 653 278 1043; Add 1535 1535 653;
  Add 236 236 1535; Mul 492 492 236; Add 316 316 492; Sub 173 173 316; Mul 316 675 1520; Mul 492 215 139;
  Mul 1535 290 1043; Add 492 492 1535; Mul 1535 674 78; Mul 653 216 96; Mul 1482 274 207; Add 653 653 1482;
  Mul 1482 296 653; Sub 1535 1535 1482; Mul 1482 676 247; Mul 124 215 124; Mul 270 270 1043; Add 124 124 270;
  Mul 145 216 145; Mul 281 281 207; Add 145 145 281].
Definition casadi_f0_952 : list instruction := [
  Sub 124 124 145; Mul 145 255 124; Add 1482 1482 145; Add 1535 1535 1482; Add 492 492 1535; Mul 1535 602 501;
  Mul 1482 523 509; Add 1535 1535 1482; Mul 1482 671 1520; Mul 145 502 236; Add 1482 1482 145;
  Add 1535 1535 1482; Sub 1535 492 1535; Mul 1535 672 1535; Mul 1482 502 1535; Add 316 316 1482;
  Mul 1482 679 1330; Mul 139 216 139; Mul 290 290 207; Sub 139 139 290; Mul 290 676 137; Mul 145 278 124;
  Add 290 290 145; Mul 145 680 78; Mul 274 274 1043; Mul 96 215 96; Sub 274 274 96; Mul 96 296 274;
  Add 145 145 96; Add 290 290 145; Sub 139 139 290; Mul 290 671 1330; Mul 145 505 236; Add 290 290 145;
  Mul 145 670 501; Mul 96 523 1139; Add 145 145 96; Add 290 290 145; Add 290 139 290; Mul 290 672 290;
  Mul 145 505 290; Add 1482 1482 145; Sub 316 316 1482; Add 173 173 316; Mul 1114 674 1114; Mul 633 633 653;
  Sub 1114 1114 633; Mul 1322 680 1322; Mul 657 657 274; Add 1322 1322 657; Mul 275 275 1030; Mul 631 631 111;
  Add 111 275 631; Mul 1030 629 95; Mul 657 282 1074; Add 633 1030 657; Mul 316 655 146; Mul 1482 271 1467;
  Add 145 316 1482; Add 631 631 275; Add 275 145 631; Add 633 633 275; Sub 96 111 633; Add 657 657 1030;
  Add 1482 1482 316; Add 111 1482 111; Add 657 657 111; Sub 631 631 657; Sub 96 96 631; Mul 329 329 1308;
  Mul 636 636 52; Add 52 329 636; Mul 1308 634 1085; Mul 631 336 1288; Add 316 1308 631; Mul 1030 659 38;
  Mul 281 325 1159; Add 270 1030 281; Add 636 636 329; Add 329 270 636; Add 316 316 329; Sub 1590 52 316;
  Add 631 631 1308; Add 281 281 1030; Add 52 281 52; Add 631 631 52; Sub 636 636 631; Sub 1590 1590 636;
  Mul 384 384 1223; Mul 641 641 1635; Add 1635 384 641; Mul 1223 639 1190; Mul 636 391 1410; Add 1030 1223 636;
  Mul 1308 663 1269; Mul 1271 381 1175; Add 1348 1308 1271; Add 641 641 384; Add 384 1348 641;
  Add 1030 1030 384; Sub 1388 1635 1030; Add 636 636 1223; Add 1271 1271 1308; Add 1635 1271 1635;
  Add 636 636 1635; Sub 641 641 636; Sub 1388 1388 641; Mul 1648 438 1648; Mul 646 646 1563; Add 641 1648 646;
  Mul 1308 644 1217; Mul 1223 445 1158; Add 1256 1308 1223; Mul 1355 667 1147; Mul 1456 434 1075;
  Add 1166 1355 1456; Add 646 646 1648; Add 1648 1166 646; Add 1256 1256 1648; Sub 1523 641 1256;
  Add 1223 1223 1308; Add 1456 1456 1355; Add 641 1456 641; Add 1223 1223 641; Sub 646 646 1223;
  Sub 1523 1523 646; Add 1388 1388 1523; Add 1590 1590 1388; Add 96 96 1590; Mul 96 676 96; Mul 687 687 124;
  Add 646 96 687; Sub 1322 1322 646; Add 1114 1114 1322; Mul 1372 215 1372; Mul 552 552 1043; Add 1372 1372 552;
  Mul 60 216 60; Mul 568 568 207; Sub 60 60 568; Sub 1372 1372 60; Add 1114 1114 1372; Add 173 173 1114;
  Mul 173 2 173; Mul 649 649 1373; Add 173 173 649; Add 192 192 173; Mul 424 677 424; Mul 173 216 152].
Definition casadi_f0_953 : list instruction := [
  Mul 649 309 207; Sub 173 173 649; Mul 649 215 125; Mul 1114 332 1043; Add 649 649 1114; Add 173 173 649;
  Mul 484 484 173; Add 424 424 484; Mul 484 706 313; Mul 649 216 1420; Mul 1114 349 207; Sub 649 649 1114;
  Mul 1114 513 649; Add 484 484 1114; Mul 1114 712 512; Mul 1372 215 1420; Mul 60 349 1043; Add 1372 1372 60;
  Mul 60 530 1372; Add 1114 1114 60; Add 484 484 1114; Sub 424 424 484; Mul 484 711 71; Mul 1114 706 493;
  Mul 60 519 649; Add 1114 1114 60; Mul 60 677 71; Mul 568 494 173; Add 60 60 568; Add 1114 1114 60;
  Mul 60 215 1041; Mul 568 344 1043; Add 60 60 568; Mul 568 714 1420; Mul 552 216 273; Mul 1322 328 207;
  Sub 552 552 1322; Mul 1322 349 552; Add 568 568 1322; Mul 1322 716 152; Mul 68 216 68; Mul 335 335 207;
  Sub 68 68 335; Mul 1393 215 1393; Mul 324 324 1043; Add 1393 1393 324; Add 68 68 1393; Mul 1393 309 68;
  Add 1322 1322 1393; Add 568 568 1322; Add 60 60 568; Sub 1114 1114 60; Mul 1114 156 1114; Mul 568 494 1114;
  Add 484 484 568; Mul 568 719 149; Mul 1322 716 125; Mul 1393 332 68; Add 1322 1322 1393; Mul 1393 718 1420;
  Mul 273 215 273; Mul 328 328 1043; Add 273 273 328; Mul 328 349 273; Add 1393 1393 328; Add 1322 1322 1393;
  Mul 1041 216 1041; Mul 344 344 207; Sub 1041 1041 344; Sub 1322 1322 1041; Mul 1041 677 149; Mul 344 497 173;
  Add 1041 1041 344; Mul 344 712 493; Mul 1393 519 1372; Add 344 344 1393; Add 1041 1041 344;
  Sub 1041 1322 1041; Mul 1041 156 1041; Mul 344 497 1041; Add 568 568 344; Sub 484 484 568; Add 424 424 484;
  Mul 1590 716 1590; Mul 694 694 68; Add 484 1590 694; Mul 1261 718 1261; Mul 661 661 273; Add 1261 1261 661;
  Sub 484 484 1261; Mul 1509 714 1509; Mul 638 638 552; Add 1509 1509 638; Sub 484 484 1509; Mul 264 216 264;
  Mul 582 582 207; Sub 264 264 582; Mul 1028 215 1028; Mul 618 618 1043; Add 1028 1028 618; Sub 264 264 1028;
  Add 484 484 264; Add 424 424 484; Mul 424 3 424; Mul 681 681 1561; Add 424 424 681; Add 192 192 424;
  Mul 424 715 500; Mul 681 327 362; Mul 484 405 46; Add 681 681 484; Mul 484 318 1171; Mul 264 387 75;
  Add 484 484 264; Sub 681 681 484; Mul 484 510 681; Add 424 424 484; Mul 484 721 218; Mul 264 318 256;
  Mul 1028 363 75; Add 264 264 1028; Mul 1028 310 362; Mul 618 405 289; Add 1028 1028 618; Sub 264 264 1028;
  Mul 1028 528 264; Add 484 484 1028; Add 424 424 484; Mul 484 722 425; Mul 1028 310 1171; Mul 618 387 289;
  Add 1028 1028 618; Mul 618 327 256; Mul 582 363 46; Add 618 618 582; Sub 1028 1028 618; Mul 618 479 1028;
  Add 484 484 618; Add 424 424 484; Mul 484 726 371; Mul 618 318 259; Mul 582 404 75; Add 618 618 582;
  Mul 582 310 1115; Mul 1509 399 289; Add 582 582 1509; Sub 618 618 582; Mul 582 725 362; Mul 1509 327 1329].
Definition casadi_f0_954 : list instruction := [
  Mul 638 383 46; Add 1509 1509 638; Mul 638 318 1025; Mul 1261 379 75; Add 638 638 1261; Sub 1509 1509 638;
  Mul 638 405 1509; Add 582 582 638; Mul 638 727 256; Mul 1025 310 1025; Mul 379 379 289; Add 1025 1025 379;
  Mul 379 327 1128; Mul 1261 390 46; Add 379 379 1261; Sub 1025 1025 379; Mul 379 363 1025; Add 638 638 379;
  Sub 582 582 638; Add 618 618 582; Mul 582 715 485; Mul 638 515 681; Add 582 582 638; Mul 638 722 371;
  Mul 379 486 1028; Add 638 638 379; Sub 582 582 638; Sub 582 618 582; Mul 582 723 582; Mul 638 486 582;
  Add 484 484 638; Mul 638 730 1701; Mul 1115 327 1115; Mul 399 399 46; Add 1115 1115 399; Mul 399 318 397;
  Mul 379 408 75; Add 399 399 379; Sub 1115 1115 399; Mul 399 727 1171; Mul 379 387 1025; Add 399 399 379;
  Mul 379 731 362; Mul 1128 318 1128; Mul 390 390 75; Add 1128 1128 390; Mul 1329 310 1329; Mul 383 383 289;
  Add 1329 1329 383; Sub 1128 1128 1329; Mul 1329 405 1128; Add 379 379 1329; Sub 399 399 379;
  Add 1115 1115 399; Mul 399 722 1701; Mul 379 489 1028; Add 399 399 379; Mul 379 721 485; Mul 1329 515 264;
  Add 379 379 1329; Sub 399 399 379; Sub 399 1115 399; Mul 399 723 399; Mul 379 489 399; Add 638 638 379;
  Sub 484 484 638; Add 424 424 484; Mul 484 725 1251; Mul 638 643 1509; Add 484 484 638; Mul 638 731 1565;
  Mul 379 665 1128; Add 638 638 379; Mul 379 727 1388; Mul 1329 701 1025; Add 383 379 1329; Add 638 638 383;
  Add 484 484 638; Mul 638 310 1385; Mul 383 620 289; Add 638 638 383; Mul 383 327 376; Mul 390 595 46;
  Add 383 383 390; Mul 1555 318 1555; Mul 395 395 75; Add 390 1555 395; Add 383 383 390; Add 638 638 383;
  Sub 484 484 638; Add 424 424 484; Mul 484 4 424; Mul 638 720 1346; Add 484 484 638; Add 192 192 484;
  Mul 484 728 1549; Mul 638 372 413; Mul 383 459 1577; Add 638 638 383; Mul 383 369 1170; Mul 390 441 1600;
  Add 383 383 390; Sub 638 638 383; Mul 383 443 638; Add 484 484 383; Mul 383 733 1584; Mul 390 369 1466;
  Mul 1261 417 1600; Add 390 390 1261; Mul 1261 358 413; Mul 661 459 1464; Add 1261 1261 661; Sub 390 390 1261;
  Mul 1261 426 390; Add 383 383 1261; Add 484 484 383; Mul 383 734 1224; Mul 1261 358 1170; Mul 661 441 1464;
  Add 1261 1261 661; Mul 661 372 1466; Mul 568 417 1577; Add 661 661 568; Sub 1261 1261 661; Mul 661 478 1261;
  Add 383 383 661; Add 484 484 383; Mul 383 735 1217; Mul 661 369 454; Mul 568 458 1600; Add 661 661 568;
  Mul 568 358 1517; Mul 344 451 1464; Add 568 568 344; Sub 661 661 568; Mul 568 736 413; Mul 344 372 1540;
  Mul 1393 437 1577; Add 344 344 1393; Mul 1393 369 1552; Mul 328 432 1600; Add 1393 1393 328; Sub 344 344 1393;
  Mul 1393 459 344; Add 568 568 1393; Mul 1393 738 1466; Mul 1552 358 1552; Mul 432 432 1464;
  Add 1552 1552 432].
Definition casadi_f0_955 : list instruction := [
  Mul 432 372 1527; Mul 328 444 1577; Add 432 432 328; Sub 1552 1552 432; Mul 432 417 1552; Add 1393 1393 432;
  Sub 568 568 1393; Add 661 661 568; Mul 568 728 1563; Mul 1393 438 638; Add 568 568 1393; Mul 1393 734 1217;
  Mul 432 445 1261; Add 1393 1393 432; Sub 568 568 1393; Sub 661 661 568; Mul 661 430 661; Mul 568 445 661;
  Add 383 383 568; Mul 568 739 1147; Mul 1517 372 1517; Mul 451 451 1577; Add 1517 1517 451; Mul 451 369 450;
  Mul 1393 462 1600; Add 451 451 1393; Sub 1517 1517 451; Mul 451 738 1170; Mul 1393 441 1552; Add 451 451 1393;
  Mul 1393 741 413; Mul 1527 369 1527; Mul 444 444 1600; Add 1527 1527 444; Mul 1540 358 1540; Mul 437 437 1464;
  Add 1540 1540 437; Sub 1527 1527 1540; Mul 1540 459 1527; Add 1393 1393 1540; Sub 451 451 1393;
  Add 1517 1517 451; Mul 451 734 1147; Mul 1393 434 1261; Add 451 451 1393; Mul 1393 733 1563; Mul 1540 438 390;
  Add 1393 1393 1540; Sub 451 451 1393; Sub 1517 1517 451; Mul 1517 430 1517; Mul 451 434 1517; Add 568 568 451;
  Sub 383 383 568; Add 484 484 383; Mul 383 736 1320; Mul 568 648 344; Add 383 383 568; Mul 568 741 1140;
  Mul 451 669 1527; Add 568 568 451; Mul 451 738 1523; Mul 1393 708 1552; Add 1540 451 1393; Add 568 568 1540;
  Add 383 383 568; Mul 568 358 1136; Mul 1540 622 1464; Add 568 568 1540; Mul 1540 372 14; Mul 437 608 1577;
  Add 1540 1540 437; Mul 1578 369 1578; Mul 449 449 1600; Add 437 1578 449; Add 1540 1540 437; Add 568 568 1540;
  Sub 383 383 568; Add 484 484 383; Mul 383 5 484; Mul 568 732 1052; Add 383 383 568; Add 192 192 383;
  Mul 383 286 10; Mul 568 212 383; Mul 568 107 568; Mul 1540 745 1609; Mul 437 737 1609; Mul 444 9 383;
  Add 437 437 444; Mul 444 743 1352; Mul 286 286 84; Mul 432 8 286; Add 444 444 432; Sub 437 437 444;
  Mul 444 269 437; Mul 432 81 444; Mul 328 746 1501; Mul 743 743 1609; Mul 324 9 286; Sub 743 743 324;
  Mul 383 8 383; Mul 737 737 1352; Sub 383 383 737; Sub 743 743 383; Mul 383 53 743; Add 328 328 383;
  Mul 383 66 437; Mul 737 742 1202; Sub 383 383 737; Add 328 328 383; Mul 383 323 328; Mul 737 47 383;
  Mul 324 378 328; Mul 335 24 324; Mul 646 752 29; Mul 1355 66 743; Mul 746 746 1202; Sub 1355 1355 746;
  Mul 742 742 1501; Mul 437 53 437; Add 742 742 437; Sub 1355 1355 742; Mul 742 35 1355; Add 646 646 742;
  Mul 742 378 646; Mul 437 31 742; Sub 335 335 437; Mul 437 753 1387; Mul 746 15 646; Add 437 437 746;
  Mul 746 16 328; Mul 1308 747 1221; Sub 746 746 1308; Add 437 437 746; Mul 437 430 437; Mul 746 26 437;
  Mul 646 16 646; Mul 753 753 1221; Sub 646 646 753; Mul 747 747 1387; Mul 328 15 328; Add 747 747 328;
  Sub 646 646 747; Mul 646 430 646; Mul 747 28 646; Sub 746 746 747; Mul 747 16 437; Mul 328 755 1221].
Definition casadi_f0_956 : list instruction := [
  Sub 747 747 328; Mul 328 757 1387; Mul 753 15 646; Add 328 328 753; Sub 747 747 328; Mul 328 25 747;
  Mul 753 16 646; Mul 757 757 1221; Sub 753 753 757; Mul 755 755 1387; Mul 757 15 437; Add 755 755 757;
  Add 753 753 755; Mul 755 32 753; Sub 328 328 755; Add 328 746 328; Add 335 335 328; Mul 328 19 335;
  Mul 755 751 1222; Sub 328 328 755; Mul 755 763 29; Mul 757 19 1355; Mul 752 752 1222; Sub 757 757 752;
  Mul 378 378 757; Mul 31 31 378; Mul 752 380 324; Sub 31 31 752; Mul 757 430 757; Mul 28 28 757;
  Mul 437 433 437; Sub 28 28 437; Mul 437 16 28; Mul 752 764 1221; Sub 437 437 752; Mul 752 766 1387;
  Mul 433 433 646; Mul 26 26 757; Sub 433 433 26; Mul 26 15 433; Add 752 752 26; Add 437 437 752; Mul 32 32 757;
  Mul 752 198 747; Sub 32 32 752; Add 437 437 32; Add 31 31 437; Mul 437 35 31; Add 755 755 437;
  Add 328 328 755; Add 324 324 747; Mul 747 48 324; Add 755 742 753; Mul 437 19 755; Mul 32 765 1222;
  Sub 437 437 32; Mul 32 768 29; Add 752 378 757; Mul 26 35 752; Add 32 32 26; Sub 437 437 32; Mul 32 55 437;
  Sub 747 747 32; Add 328 328 747; Add 737 737 328; Mul 328 66 737; Mul 747 749 1202; Sub 328 328 747;
  Mul 747 762 1501; Mul 380 380 742; Mul 24 24 378; Sub 380 380 24; Mul 16 16 433; Mul 766 766 1221;
  Sub 16 16 766; Mul 764 764 1387; Mul 15 15 28; Add 764 764 15; Sub 16 16 764; Mul 198 198 753; Mul 25 25 757;
  Sub 198 198 25; Add 16 16 198; Add 380 380 16; Mul 16 62 437; Mul 752 19 752; Mul 768 768 1222;
  Sub 752 752 768; Mul 765 765 29; Mul 755 35 755; Add 765 765 755; Add 752 752 765; Mul 48 48 752;
  Sub 16 16 48; Add 16 380 16; Mul 323 323 1355; Mul 47 47 323; Sub 16 16 47; Mul 47 53 16; Add 747 747 47;
  Add 328 328 747; Mul 747 86 437; Sub 328 328 747; Add 432 432 328; Mul 328 9 432; Add 1540 1540 328;
  Mul 16 66 16; Mul 762 762 1202; Sub 16 16 762; Mul 749 749 1501; Mul 737 53 737; Add 749 749 737;
  Sub 16 16 749; Mul 749 91 437; Add 16 16 749; Mul 269 269 743; Mul 81 81 269; Sub 16 16 81; Mul 81 8 16;
  Mul 743 758 1352; Sub 81 81 743; Add 1540 1540 81; Mul 437 102 437; Add 81 323 752; Mul 743 66 81;
  Mul 749 770 1202; Sub 743 743 749; Mul 749 772 1501; Add 737 383 324; Mul 762 53 737; Add 749 749 762;
  Add 743 743 749; Add 749 269 743; Mul 762 8 749; Mul 328 773 1352; Sub 762 762 328; Mul 328 776 1609;
  Mul 66 66 737; Mul 772 772 1202; Sub 66 66 772; Mul 770 770 1501; Mul 53 53 81; Add 770 770 53; Sub 66 66 770;
  Add 770 444 66; Mul 53 9 770; Add 328 328 53; Sub 762 762 328; Mul 762 108 762].
Definition casadi_f0_957 : list instruction := [
  Sub 437 437 762; Add 1540 1540 437; Add 568 568 1540; Mul 114 114 568; Mul 740 740 84; Sub 114 114 740;
  Mul 774 774 10; Mul 432 8 432; Mul 745 745 1352; Sub 432 432 745; Mul 758 758 1609; Mul 16 9 16;
  Add 758 758 16; Sub 432 432 758; Mul 773 773 1609; Mul 9 9 749; Add 773 773 9; Mul 8 8 770; Mul 776 776 1352;
  Sub 8 8 776; Add 773 773 8; Mul 108 108 773; Add 432 432 108; Mul 212 212 286; Mul 107 107 212;
  Sub 432 432 107; Mul 113 113 432; Add 774 774 113; Sub 114 114 774; Add 192 192 114; Mul 114 210 192;
  Sub 1072 1072 114; Div 114 97 92; Mul 1069 1069 6; Sub 114 114 1069; Mul 1069 779 114; Add 311 311 238;
  Add 542 542 548; Sub 311 311 542; Add 70 70 195; Add 186 186 524; Sub 70 70 186; Add 144 144 70;
  Sub 311 311 144; Add 311 311 77; Add 1443 1443 99; Add 260 260 1642; Sub 1443 1443 260; Add 547 547 562;
  Add 27 27 135; Add 547 547 27; Add 283 283 109; Add 563 563 557; Sub 283 283 563; Add 547 547 283;
  Sub 1443 1443 547; Add 1443 1443 571; Add 1675 1675 1656; Add 314 314 44; Sub 1675 1675 314; Add 561 561 576;
  Add 76 76 131; Add 561 561 76; Add 337 337 317; Add 577 577 263; Sub 337 337 577; Add 561 561 337;
  Sub 1675 1675 561; Add 1675 1675 585; Add 1361 1361 1698; Add 575 575 39; Sub 1361 1361 575; Add 63 63 590;
  Add 1395 1395 69; Add 63 63 1395; Add 392 392 373; Add 1298 1298 1571; Sub 392 392 1298; Add 63 63 392;
  Sub 1361 1361 63; Add 1361 1361 598; Add 1096 1096 1181; Add 40 40 1266; Sub 1096 1096 40; Add 603 603 418;
  Add 431 431 43; Add 603 603 431; Add 446 446 18; Add 1062 1062 1243; Sub 446 446 1062; Add 603 603 446;
  Sub 1096 1096 603; Add 1096 1096 367; Add 1361 1361 1096; Add 1675 1675 1361; Add 1443 1443 1675;
  Add 311 311 1443; Mul 311 216 311; Mul 780 780 207; Sub 311 311 780; Mul 781 781 1043; Add 1336 1336 1195;
  Add 1481 1481 1111; Sub 1336 1336 1481; Sub 554 554 1336; Add 551 551 1334; Add 1599 1599 1130;
  Sub 551 551 1599; Add 554 554 551; Sub 554 554 1694; Add 565 565 1138; Add 1215 1215 1536; Sub 565 565 1215;
  Add 292 292 1156; Add 1669 1669 1105; Add 292 292 1669; Add 1357 1357 1089; Add 550 550 555;
  Sub 1357 1357 550; Add 292 292 1357; Sub 565 565 292; Sub 565 565 1255; Add 579 579 1379; Add 1230 1230 1589;
  Sub 579 579 1230; Add 346 346 1319; Add 1580 1580 1194; Add 346 346 1580; Add 1381 1381 1248; Add 471 471 569;
  Sub 1381 1381 471; Add 346 346 1381; Sub 579 579 346; Sub 579 579 1662; Add 592 592 1404; Add 1673 1673 1172;
  Sub 592 592 1673; Add 401 401 1234; Add 1706 1706 1465; Add 401 401 1706; Add 1405 1405 1146; Add 473 473 583;
  Sub 1405 1405 473; Add 401 401 1405; Sub 592 592 401; Sub 592 592 1091; Add 605 605 1428; Add 1036 1036 1532;
  Sub 605 605 1036].
Definition casadi_f0_958 : list instruction := [
  Add 455 455 1419; Add 1668 1668 1376; Add 455 455 1668; Add 1264 1264 1492; Add 475 475 596;
  Sub 1264 1264 475; Add 455 455 1264; Sub 605 605 455; Sub 605 605 1090; Add 592 592 605; Add 579 579 592;
  Add 565 565 579; Add 554 554 565; Mul 554 215 554; Add 781 781 554; Sub 311 311 781; Sub 613 613 477;
  Sub 1226 1226 1185; Sub 1333 1333 1620; Sub 1595 1595 1497; Sub 1406 1406 1468; Add 1595 1595 1406;
  Add 1333 1333 1595; Add 1226 1226 1333; Add 613 613 1226; Mul 613 540 613; Mul 625 625 205; Sub 613 613 625;
  Mul 651 651 214; Sub 1084 1084 1326; Add 1267 1267 1455; Add 1511 1511 1542; Add 1597 1597 1646;
  Add 1402 1402 1439; Add 1597 1597 1402; Add 1511 1511 1597; Add 1267 1267 1511; Add 1084 1084 1267;
  Mul 1084 544 1084; Add 651 651 1084; Add 613 613 651; Sub 311 311 613; Mul 311 0 311; Mul 23 23 1374;
  Add 311 311 23; Mul 520 508 520; Mul 534 534 1654; Add 520 520 534; Add 368 368 423; Mul 482 482 428;
  Mul 511 511 1270; Add 482 482 511; Sub 368 368 482; Add 304 304 368; Mul 490 490 375; Mul 514 514 370;
  Add 490 490 514; Sub 304 304 490; Add 253 253 304; Mul 498 498 262; Mul 518 518 235; Add 498 498 518;
  Sub 253 253 498; Add 220 220 253; Mul 522 522 1031; Mul 506 506 1165; Sub 522 522 506; Sub 220 220 522;
  Mul 522 526 220; Mul 506 784 208; Add 522 522 506; Add 1696 1696 1593; Mul 1304 1304 456; Add 480 480 1304;
  Mul 480 20 480; Add 1696 1696 480; Add 319 319 1696; Mul 1153 1153 50; Add 487 487 1153; Mul 487 37 487;
  Add 319 319 487; Add 265 265 319; Mul 1212 1212 83; Add 495 495 1212; Mul 495 80 495; Add 265 265 495;
  Add 224 224 265; Mul 1293 1293 104; Add 503 503 1293; Mul 503 100 503; Sub 224 224 503; Mul 224 536 224;
  Mul 496 496 535; Add 224 224 496; Add 522 522 224; Sub 520 520 522; Mul 546 546 533; Mul 522 538 402;
  Add 546 546 522; Mul 522 791 365; Mul 197 215 197; Mul 222 222 1043; Add 197 197 222; Mul 49 216 49;
  Mul 229 229 207; Sub 49 49 229; Sub 197 197 49; Mul 49 540 190; Mul 229 227 205; Sub 49 49 229;
  Mul 229 544 187; Mul 222 219 214; Add 229 229 222; Sub 49 49 229; Add 197 197 49; Mul 49 526 527;
  Mul 229 543 208; Add 49 49 229; Mul 365 536 365; Mul 229 537 535; Add 365 365 229; Sub 49 49 365;
  Sub 49 197 49; Mul 49 141 49; Mul 537 537 49; Add 522 522 537; Sub 546 546 522; Add 520 520 546;
  Mul 556 556 120; Mul 241 560 241; Add 546 556 241; Sub 240 546 240; Sub 1344 203 1344; Sub 176 179 176;
  Add 1344 1344 176; Add 241 241 556; Sub 87 87 241; Add 1344 1344 87; Sub 240 240 1344; Mul 570 570 1225;
  Mul 267 574 267; Add 1344 570 267; Sub 1574 1344 1574; Sub 295 295 57; Sub 74 74 133; Add 295 295 74;
  Add 267 267 570; Sub 272 272 267; Add 295 295 272].
Definition casadi_f0_959 : list instruction := [
  Sub 1574 1574 295; Mul 584 584 1442; Mul 34 588 34; Add 295 584 34; Sub 126 295 126; Sub 350 350 1100;
  Sub 1705 1705 160; Add 350 350 1705; Add 34 34 584; Sub 326 326 34; Add 350 350 326; Sub 126 126 350;
  Mul 597 597 1491; Mul 1613 601 1613; Add 350 597 1613; Sub 1280 350 1280; Sub 1120 1120 254;
  Sub 1150 1150 1307; Add 1120 1120 1150; Add 1613 1613 597; Sub 382 382 1613; Add 1120 1120 382;
  Sub 1280 1280 1120; Mul 610 610 42; Mul 1664 614 1664; Add 1120 610 1664; Sub 1544 1120 1544; Sub 436 436 427;
  Sub 452 452 422; Add 436 436 452; Add 1664 1664 610; Sub 435 435 1664; Add 436 436 435; Sub 1544 1544 436;
  Add 1280 1280 1544; Add 126 126 1280; Add 1574 1574 126; Add 240 240 1574; Mul 240 216 240; Mul 251 251 207;
  Sub 240 240 251; Mul 230 230 202; Mul 177 225 177; Add 251 230 177; Mul 204 231 204; Mul 223 223 169;
  Sub 204 204 223; Sub 251 251 204; Mul 549 560 549; Mul 553 553 120; Add 223 549 553; Mul 244 244 115;
  Mul 248 248 157; Add 157 244 248; Sub 223 223 157; Sub 251 251 223; Mul 558 558 120; Mul 560 560 1342;
  Add 1342 558 560; Mul 243 243 174; Mul 249 249 159; Add 159 243 249; Sub 1342 1342 159; Add 251 251 1342;
  Mul 219 219 12; Mul 239 239 187; Add 219 219 239; Mul 227 227 167; Mul 246 246 190; Add 227 227 246;
  Add 219 219 227; Mul 467 467 221; Mul 525 525 237; Sub 467 467 525; Add 219 219 467; Mul 308 231 308;
  Mul 559 559 169; Sub 308 308 559; Mul 616 616 202; Mul 340 225 340; Add 616 616 340; Add 308 308 616;
  Add 219 219 308; Mul 219 213 219; Sub 251 251 219; Mul 572 572 1225; Mul 1366 574 1366; Add 308 572 1366;
  Mul 284 284 217; Mul 258 258 142; Add 142 284 258; Sub 308 308 142; Mul 297 297 146; Mul 142 271 136;
  Add 217 297 142; Mul 616 282 291; Mul 300 300 95; Add 340 616 300; Add 217 217 340; Mul 574 574 268;
  Mul 567 567 1225; Add 1225 574 567; Mul 279 279 228; Mul 276 276 130; Add 130 279 276; Sub 1225 1225 130;
  Add 217 217 1225; Sub 308 308 217; Mul 121 255 121; Mul 280 280 247; Add 121 121 280; Mul 1073 278 1073;
  Mul 266 266 137; Add 1073 1073 266; Add 121 121 1073; Mul 296 296 261; Mul 472 472 78; Add 296 296 472;
  Add 121 121 296; Mul 573 573 95; Mul 1601 282 1601; Add 573 573 1601; Mul 617 617 146; Mul 564 271 564;
  Add 617 617 564; Sub 573 573 617; Add 121 121 573; Mul 121 213 121; Sub 308 308 121; Mul 586 586 1442;
  Mul 1390 588 1390; Add 573 586 1390; Mul 338 338 288; Mul 312 312 321; Add 321 338 312; Sub 573 573 321;
  Mul 351 351 38; Mul 321 325 155; Add 288 351 321; Mul 617 336 1106; Mul 354 354 1085; Add 564 617 354;
  Add 288 288 564; Mul 588 588 322; Mul 581 581 1442; Add 1442 588 581; Mul 333 333 110; Mul 330 330 67;
  Add 67 333 330].
Definition casadi_f0_960 : list instruction := [
  Sub 1442 1442 67; Add 288 288 1442; Sub 573 573 288; Mul 112 309 112; Mul 334 334 152; Add 112 112 334;
  Mul 73 332 73; Mul 320 320 125; Add 73 73 320; Add 112 112 73; Mul 349 349 315; Mul 474 474 1420;
  Add 349 349 474; Add 112 112 349; Mul 587 587 1085; Mul 1076 336 1076; Add 587 587 1076; Mul 619 619 38;
  Mul 578 325 578; Add 619 619 578; Sub 587 587 619; Add 112 112 587; Mul 112 213 112; Sub 573 573 112;
  Mul 599 599 1491; Mul 1414 601 1414; Add 587 599 1414; Mul 393 393 345; Mul 366 366 1660; Add 1660 393 366;
  Sub 587 587 1660; Mul 406 406 1269; Mul 1660 381 398; Add 345 406 1660; Mul 619 391 400; Mul 409 409 1190;
  Add 578 619 409; Add 345 345 578; Mul 601 601 377; Mul 594 594 1491; Add 1491 601 594; Mul 388 388 1282;
  Mul 385 385 1205; Add 1205 388 385; Sub 1491 1491 1205; Add 345 345 1491; Sub 587 587 345; Mul 1219 363 1219;
  Mul 389 389 256; Add 1219 1219 389; Mul 1452 387 1452; Mul 374 374 1171; Add 1452 1452 374;
  Add 1219 1219 1452; Mul 405 405 1519; Mul 476 476 362; Add 405 405 476; Add 1219 1219 405; Mul 600 600 1190;
  Mul 1162 391 1162; Add 600 600 1162; Mul 621 621 1269; Mul 591 381 591; Add 621 621 591; Sub 600 600 621;
  Add 1219 1219 600; Mul 1219 213 1219; Sub 587 587 1219; Mul 612 612 42; Mul 1437 614 1437; Add 600 612 1437;
  Mul 447 447 72; Mul 420 420 1570; Add 1570 447 420; Sub 600 600 1570; Mul 460 460 1147; Mul 1570 434 396;
  Add 72 460 1570; Mul 621 445 453; Mul 463 463 1217; Add 591 621 463; Add 72 72 591; Mul 614 614 429;
  Mul 607 607 42; Add 42 614 607; Mul 442 442 1375; Mul 439 439 1283; Add 1283 442 439; Sub 42 42 1283;
  Add 72 72 42; Sub 600 600 72; Mul 72 417 1549; Mul 42 443 1466; Add 72 72 42; Mul 42 441 1584;
  Mul 1283 426 1170; Add 42 42 1283; Add 72 72 42; Mul 459 459 1224; Mul 413 478 413; Add 459 459 413;
  Add 72 72 459; Mul 611 611 1217; Mul 1157 445 1157; Add 611 611 1157; Mul 623 623 1147; Mul 1407 434 1407;
  Add 623 623 1407; Sub 611 611 623; Add 72 72 611; Mul 72 213 72; Sub 600 600 72; Add 587 587 600;
  Add 573 573 587; Add 308 308 573; Add 251 251 308; Mul 251 215 251; Mul 470 470 1043; Add 251 251 470;
  Sub 240 240 251; Mul 251 225 1692; Mul 470 624 202; Add 611 251 470; Mul 623 231 628; Mul 1407 650 169;
  Sub 623 623 1407; Sub 611 611 623; Mul 421 213 421; Add 1407 611 421; Mul 655 655 95; Mul 282 282 1467;
  Add 1467 655 282; Sub 1467 132 1467; Mul 271 271 1074; Mul 629 629 146; Add 146 271 629; Add 1467 1467 146;
  Mul 1688 213 1688; Sub 146 1467 1688; Mul 659 659 1085; Mul 336 336 1159; Add 1159 659 336; Sub 1159 116 1159;
  Mul 325 325 1288; Mul 634 634 38; Add 38 325 634; Add 1159 1159 38; Mul 1103 213 1103; Sub 38 1159 1103].
Definition casadi_f0_961 : list instruction := [
  Mul 663 663 1190; Mul 391 391 1175; Add 1175 663 391; Sub 1175 1476 1175; Mul 381 381 1410; Mul 639 639 1269;
  Add 1269 381 639; Add 1175 1175 1269; Mul 1384 213 1384; Sub 1269 1175 1384; Mul 667 667 1217;
  Mul 1075 445 1075; Add 1410 667 1075; Sub 1410 1196 1410; Mul 1158 434 1158; Mul 644 644 1147;
  Add 1190 1158 644; Add 1410 1410 1190; Mul 213 213 1386; Sub 1386 1410 213; Add 1269 1269 1386;
  Add 38 38 1269; Add 146 146 38; Add 1407 1407 146; Mul 1407 540 1407; Mul 250 250 205; Sub 1407 1407 250;
  Mul 225 225 628; Mul 650 650 202; Add 202 225 650; Mul 231 231 1692; Mul 624 624 169; Sub 231 231 624;
  Add 650 650 225; Mul 242 242 1681; Mul 626 626 162; Sub 242 242 626; Add 626 650 242; Add 162 231 626;
  Sub 162 202 162; Add 202 202 242; Add 231 231 202; Sub 650 650 231; Sub 162 162 650; Sub 1482 1482 633;
  Sub 145 145 657; Sub 1482 1482 145; Sub 281 281 316; Sub 270 270 631; Sub 281 281 270; Sub 1271 1271 1030;
  Sub 1348 1348 636; Sub 1271 1271 1348; Sub 1456 1456 1256; Sub 1166 1166 1223; Sub 1456 1456 1166;
  Add 1271 1271 1456; Add 281 281 1271; Add 1482 1482 281; Add 162 162 1482; Mul 1166 544 162; Mul 1223 806 214;
  Add 1166 1166 1223; Add 1407 1407 1166; Sub 240 240 1407; Add 520 520 240; Mul 520 216 520; Mul 652 652 207;
  Sub 520 520 652; Mul 804 804 1043; Mul 1418 508 1418; Mul 521 521 1654; Add 1418 1418 521; Add 1197 1197 1304;
  Mul 20 20 1197; Add 364 364 589; Sub 20 20 364; Sub 128 20 128; Add 1286 1286 1153; Mul 1286 37 1286;
  Add 128 128 1286; Sub 127 128 127; Add 1294 1294 1212; Mul 1294 80 1294; Add 127 127 1294; Add 199 199 127;
  Sub 1299 1299 1293; Mul 1299 100 1299; Add 199 199 1299; Mul 199 526 199; Mul 499 499 208; Add 199 199 499;
  Mul 220 536 220; Mul 784 784 535; Add 220 220 784; Add 199 199 220; Sub 1418 1418 199; Mul 791 791 527;
  Mul 543 543 49; Add 791 791 543; Mul 539 539 533; Mul 538 538 531; Add 539 539 538; Sub 791 791 539;
  Add 1418 1418 791; Add 177 177 230; Sub 177 177 204; Add 249 249 243; Add 560 560 558; Sub 249 249 560;
  Sub 177 177 249; Add 248 248 244; Add 553 553 549; Sub 248 248 553; Add 177 177 248; Add 177 177 219;
  Add 276 276 279; Add 567 567 574; Sub 276 276 567; Add 300 300 616; Add 142 142 297; Add 300 300 142;
  Add 258 258 284; Add 1366 1366 572; Sub 258 258 1366; Add 300 300 258; Sub 276 276 300; Add 276 276 121;
  Add 330 330 333; Add 581 581 588; Sub 330 330 581; Add 354 354 617; Add 321 321 351; Add 354 354 321;
  Add 312 312 338; Add 1390 1390 586; Sub 312 312 1390; Add 354 354 312; Sub 330 330 354; Add 330 330 112;
  Add 385 385 388; Add 594 594 601; Sub 385 385 594; Add 409 409 619; Add 1660 1660 406; Add 409 409 1660;
  Add 366 366 393; Add 1414 1414 599; Sub 366 366 1414].
Definition casadi_f0_962 : list instruction := [
  Add 409 409 366; Sub 385 385 409; Add 385 385 1219; Add 439 439 442; Add 607 607 614; Sub 439 439 607;
  Add 463 463 621; Add 1570 1570 460; Add 463 463 1570; Add 420 420 447; Add 1437 1437 612; Sub 420 420 1437;
  Add 463 463 420; Sub 439 439 463; Add 439 439 72; Add 385 385 439; Add 330 330 385; Add 276 276 330;
  Add 177 177 276; Mul 177 216 177; Mul 507 507 207; Sub 177 177 507; Add 179 179 203; Sub 241 241 161;
  Sub 179 179 241; Sub 164 164 546; Add 179 179 164; Add 138 138 129; Sub 267 267 140; Sub 138 138 267;
  Sub 117 117 1344; Add 138 138 117; Add 1066 1066 343; Sub 34 34 123; Sub 1066 1066 34; Sub 119 119 295;
  Add 1066 1066 119; Add 1412 1412 257; Sub 1613 1613 1470; Sub 1412 1412 1613; Sub 1356 1356 350;
  Add 1412 1412 1356; Add 1415 1415 341; Sub 1664 1664 1151; Sub 1415 1415 1664; Sub 1102 1102 1120;
  Add 1415 1415 1102; Add 1412 1412 1415; Add 1066 1066 1412; Add 138 138 1066; Add 179 179 138;
  Mul 179 215 179; Mul 226 226 1043; Add 179 179 226; Sub 177 177 179; Sub 202 202 626; Sub 111 111 275;
  Sub 52 52 329; Sub 1635 1635 384; Sub 641 641 1648; Add 1635 1635 641; Add 52 52 1635; Add 111 111 52;
  Add 202 202 111; Mul 1648 540 202; Mul 384 805 205; Sub 1648 1648 384; Add 470 470 251; Sub 623 623 470;
  Sub 470 623 421; Add 282 282 655; Add 629 629 271; Add 132 132 629; Sub 282 282 132; Add 132 282 1688;
  Add 336 336 659; Add 634 634 325; Add 116 116 634; Sub 336 336 116; Add 116 336 1103; Add 391 391 663;
  Add 639 639 381; Add 1476 1476 639; Sub 391 391 1476; Add 1476 391 1384; Add 1075 1075 667; Add 644 644 1158;
  Add 1196 1196 644; Sub 1075 1075 1196; Add 1196 1075 213; Add 1476 1476 1196; Add 116 116 1476;
  Add 132 132 116; Add 470 470 132; Mul 470 544 470; Mul 693 693 214; Add 470 470 693; Add 1648 1648 470;
  Sub 177 177 1648; Add 1418 1418 177; Mul 1418 215 1418; Add 804 804 1418; Sub 520 520 804; Sub 611 611 421;
  Add 1467 1467 1688; Add 1159 1159 1103; Add 1175 1175 1384; Add 1410 1410 213; Add 1175 1175 1410;
  Add 1159 1159 1175; Add 1467 1467 1159; Add 611 611 1467; Mul 611 216 611; Mul 305 305 207; Sub 611 611 305;
  Mul 202 215 202; Mul 805 805 1043; Add 202 202 805; Sub 611 611 202; Add 402 402 611; Mul 402 540 402;
  Mul 307 307 205; Sub 402 402 307; Mul 360 360 214; Mul 162 216 162; Mul 806 806 207; Sub 162 162 806;
  Add 623 623 421; Sub 282 282 1688; Sub 336 336 1103; Sub 391 391 1384; Sub 1075 1075 213; Add 391 391 1075;
  Add 336 336 391; Add 282 282 336; Add 623 623 282; Mul 623 215 623; Mul 700 700 1043; Add 623 623 700;
  Sub 162 162 623; Add 531 531 162; Mul 531 544 531; Add 360 360 531; Add 402 402 360; Sub 520 520 402;
  Mul 520 1 520; Mul 469 469 1377; Add 520 520 469; Add 311 311 520].
Definition casadi_f0_963 : list instruction := [
  Mul 520 602 253; Mul 469 783 509; Add 520 520 469; Mul 469 670 265; Mul 402 488 1139; Add 469 469 402;
  Add 520 520 469; Mul 469 671 516; Mul 402 532 236; Add 469 469 402; Sub 520 520 469; Mul 679 679 501;
  Mul 469 523 290; Add 679 679 469; Mul 469 796 1520; Mul 247 680 247; Mul 255 255 274; Add 247 247 255;
  Mul 137 674 137; Mul 278 278 653; Sub 137 137 278; Sub 247 247 137; Mul 287 216 287; Mul 294 294 207;
  Sub 287 287 294; Mul 41 215 41; Mul 299 299 1043; Add 41 41 299; Add 287 287 41; Sub 247 247 287;
  Mul 287 670 1520; Mul 41 502 1139; Add 287 287 41; Mul 41 602 1330; Mul 299 505 509; Add 41 41 299;
  Sub 287 287 41; Sub 287 247 287; Mul 287 672 287; Mul 41 502 287; Add 469 469 41; Sub 679 679 469;
  Add 520 520 679; Mul 679 674 146; Mul 469 794 653; Sub 679 679 469; Mul 469 680 1482; Mul 41 689 274;
  Add 299 469 41; Add 1093 1093 1380; Add 1189 1189 1206; Add 136 136 1189; Sub 1093 1093 136;
  Add 136 1093 1455; Add 1110 1110 1237; Add 1360 1360 1174; Add 155 155 1360; Sub 1110 1110 155;
  Add 155 1110 1542; Add 1450 1450 1704; Add 1347 1347 1480; Add 398 398 1347; Sub 1450 1450 398;
  Add 398 1450 1646; Add 1521 1521 1538; Add 1518 1518 1447; Add 396 396 1518; Sub 1521 1521 396;
  Add 396 1521 1439; Add 398 398 396; Add 155 155 398; Add 136 136 155; Mul 136 676 136; Mul 410 410 124;
  Add 136 136 410; Sub 299 299 136; Add 679 679 299; Mul 299 215 308; Mul 136 461 1043; Add 299 299 136;
  Mul 1574 216 1574; Mul 277 277 207; Sub 1574 1574 277; Sub 299 299 1574; Add 679 679 299; Add 520 520 679;
  Mul 520 216 520; Mul 707 707 207; Sub 520 520 707; Mul 793 793 1043; Mul 707 602 127; Mul 679 491 509;
  Add 707 707 679; Mul 679 670 253; Mul 299 783 1139; Add 679 679 299; Add 707 707 679; Mul 679 671 419;
  Mul 299 517 236; Add 679 679 299; Sub 707 707 679; Mul 796 796 1330; Mul 679 505 287; Add 796 796 679;
  Mul 675 675 501; Mul 679 523 1535; Add 675 675 679; Sub 796 796 675; Add 707 707 796; Mul 796 674 111;
  Mul 675 682 653; Sub 796 796 675; Mul 675 680 132; Mul 679 808 274; Add 675 675 679; Add 1649 1649 1667;
  Sub 291 291 1649; Add 1179 1179 1425; Add 291 291 1179; Sub 1179 291 1185; Add 1559 1559 1499;
  Sub 1106 1106 1559; Add 1176 1176 1463; Add 1106 1106 1176; Sub 1176 1106 1620; Add 1296 1296 1695;
  Sub 400 400 1296; Add 1401 1401 1691; Add 400 400 1401; Sub 1401 400 1497; Add 1279 1279 1444;
  Sub 453 453 1279; Add 1053 1053 1588; Add 453 453 1053; Sub 1053 453 1468; Add 1401 1401 1053;
  Add 1176 1176 1401; Add 1179 1179 1176; Mul 1179 676 1179; Mul 301 301 124; Add 1179 1179 301;
  Sub 675 675 1179; Add 675 796 675; Mul 138 215 138; Mul 303 303 1043; Add 1179 138 303; Mul 301 216 276;
  Mul 1588 468 207; Sub 301 301 1588].
Definition casadi_f0_964 : list instruction := [
  Sub 1179 1179 301; Add 675 675 1179; Add 707 707 675; Mul 707 215 707; Add 793 793 707; Sub 707 520 793;
  Mul 111 215 111; Mul 682 682 1043; Add 675 111 682; Mul 1179 216 1467; Mul 301 792 207; Sub 1179 1179 301;
  Sub 675 675 1179; Add 290 290 675; Mul 675 540 290; Mul 1179 233 205; Sub 675 675 1179; Mul 1179 789 214;
  Mul 301 215 282; Mul 1588 686 1043; Add 301 301 1588; Mul 1482 216 1482; Mul 689 689 207; Sub 1482 1482 689;
  Sub 301 301 1482; Add 1535 1535 301; Mul 301 544 1535; Add 1179 1179 301; Add 675 675 1179; Sub 707 707 675;
  Mul 707 2 707; Mul 285 285 1373; Add 707 707 285; Add 311 311 707; Mul 707 677 512; Mul 285 530 173;
  Add 707 707 285; Mul 285 706 304; Mul 675 782 649; Add 285 285 675; Mul 675 712 319; Mul 1179 481 1372;
  Add 675 675 1179; Add 285 285 675; Sub 707 707 285; Mul 719 719 493; Mul 285 519 1041; Add 719 719 285;
  Mul 285 709 71; Mul 1684 216 1684; Mul 348 348 207; Sub 1684 1684 348; Mul 342 215 342; Mul 353 353 1043;
  Add 342 342 353; Add 1684 1684 342; Mul 125 714 125; Mul 332 332 552; Add 125 125 332; Mul 152 718 152;
  Mul 309 309 273; Add 152 152 309; Sub 125 125 152; Add 1684 1684 125; Mul 125 706 149; Mul 152 497 649;
  Add 125 125 152; Mul 152 712 71; Mul 309 494 1372; Add 152 152 309; Sub 125 125 152; Sub 125 1684 125;
  Mul 125 156 125; Mul 152 494 125; Add 285 285 152; Sub 719 719 285; Add 707 707 719; Mul 719 716 155;
  Mul 285 403 68; Add 719 719 285; Mul 285 718 281; Mul 152 696 273; Add 309 285 152; Sub 719 719 309;
  Mul 309 714 38; Mul 332 797 552; Add 309 309 332; Sub 719 719 309; Mul 126 216 126; Mul 331 331 207;
  Sub 126 126 331; Mul 331 215 573; Mul 309 414 1043; Add 331 331 309; Sub 331 126 331; Add 719 719 331;
  Add 707 707 719; Mul 707 216 707; Mul 790 790 207; Sub 707 707 790; Mul 704 704 1043; Mul 790 677 313;
  Mul 719 513 173; Add 790 790 719; Mul 719 706 128; Mul 331 483 649; Add 719 719 331; Mul 331 712 304;
  Mul 309 782 1372; Add 331 331 309; Add 719 719 331; Sub 790 790 719; Mul 709 709 149; Mul 719 497 125;
  Add 709 709 719; Mul 711 711 493; Mul 719 519 1114; Add 711 711 719; Sub 709 709 711; Add 790 790 709;
  Mul 709 716 1176; Mul 711 293 68; Add 709 709 711; Mul 711 718 116; Mul 719 415 273; Add 711 711 719;
  Sub 709 709 711; Mul 711 714 52; Mul 719 685 552; Add 331 711 719; Sub 709 709 331; Mul 331 216 330;
  Mul 309 416 207; Sub 331 331 309; Mul 1066 215 1066; Mul 357 357 1043; Add 309 1066 357; Sub 331 331 309;
  Add 709 709 331; Add 790 790 709; Mul 790 215 790; Add 704 704 790; Sub 790 707 704; Mul 709 216 1159;
  Mul 331 795 207; Sub 709 709 331; Mul 52 215 52; Mul 685 685 1043; Add 331 52 685].
Definition casadi_f0_965 : list instruction := [
  Sub 709 709 331; Add 1041 1041 709; Mul 709 540 1041; Mul 331 697 205; Sub 709 709 331; Mul 331 695 214;
  Mul 281 216 281; Mul 696 696 207; Sub 281 281 696; Mul 696 215 336; Mul 309 448 1043; Add 696 696 309;
  Sub 696 281 696; Add 1114 1114 696; Mul 696 544 1114; Add 331 331 696; Add 709 709 331; Sub 709 790 709;
  Mul 709 3 709; Mul 691 691 1561; Add 709 709 691; Add 311 311 709; Mul 709 715 368; Mul 691 606 681;
  Add 709 709 691; Mul 691 721 1696; Mul 331 786 264; Add 691 691 331; Add 709 709 691; Mul 691 722 218;
  Mul 331 528 1028; Add 691 691 331; Add 709 709 691; Mul 730 730 485; Mul 691 515 399; Add 730 730 691;
  Mul 691 683 371; Mul 397 310 397; Mul 408 408 289; Add 397 397 408; Mul 259 327 259; Mul 404 404 46;
  Add 259 259 404; Sub 397 397 259; Mul 256 731 256; Mul 363 363 1128; Add 256 256 363; Mul 1171 725 1171;
  Mul 387 387 1509; Add 1171 1171 387; Sub 256 256 1171; Add 397 397 256; Mul 256 721 371; Mul 1171 486 264;
  Add 256 256 1171; Mul 1171 715 1701; Mul 387 489 681; Add 1171 1171 387; Sub 256 256 1171; Sub 256 397 256;
  Mul 256 723 256; Mul 1171 486 256; Add 691 691 1171; Sub 730 730 691; Add 709 709 730; Mul 730 725 1269;
  Mul 691 800 1509; Add 730 730 691; Mul 691 731 1271; Mul 1171 703 1128; Add 387 691 1171; Mul 363 727 398;
  Mul 259 306 1025; Add 363 363 259; Add 387 387 363; Add 730 730 387; Mul 387 310 587; Mul 363 361 289;
  Add 387 387 363; Mul 1280 327 1280; Mul 386 386 46; Add 363 1280 386; Mul 259 318 1361; Mul 404 59 75;
  Add 259 259 404; Add 363 363 259; Add 387 387 363; Sub 730 730 387; Add 709 709 730; Mul 730 216 709;
  Mul 387 690 207; Sub 730 730 387; Mul 387 807 1043; Mul 363 715 20; Mul 259 705 681; Add 363 363 259;
  Mul 259 721 368; Mul 404 606 264; Add 259 259 404; Add 363 363 259; Mul 259 722 500; Mul 404 510 1028;
  Add 259 259 404; Add 363 363 259; Mul 683 683 1701; Mul 259 489 256; Add 683 683 259; Mul 726 726 485;
  Mul 259 515 582; Add 726 726 259; Sub 683 683 726; Add 363 363 683; Mul 683 725 1635; Mul 726 692 1509;
  Add 259 683 726; Mul 404 731 1476; Mul 408 465 1128; Add 404 404 408; Mul 408 727 1401; Mul 331 785 1025;
  Add 408 408 331; Add 404 404 408; Add 259 259 404; Mul 1412 310 1412; Mul 412 412 289; Add 404 1412 412;
  Mul 408 327 385; Mul 331 407 46; Add 408 408 331; Mul 331 318 592; Mul 696 580 75; Add 331 331 696;
  Add 408 408 331; Add 404 404 408; Sub 259 259 404; Add 363 363 259; Mul 259 215 363; Add 387 387 259;
  Sub 259 730 387; Mul 1635 310 1635; Mul 692 692 289; Add 404 1635 692; Mul 408 327 1175; Mul 331 798 46;
  Add 408 408 331; Mul 331 318 1595; Mul 696 640 75; Add 331 331 696; Add 408 408 331].
Definition casadi_f0_966 : list instruction := [
  Add 404 404 408; Sub 399 399 404; Mul 404 540 399; Mul 408 811 205; Sub 404 404 408; Mul 408 813 214;
  Mul 331 310 391; Mul 696 464 289; Add 331 331 696; Mul 1271 327 1271; Mul 703 703 46; Add 696 1271 703;
  Mul 309 318 1597; Mul 332 662 75; Add 309 309 332; Add 696 696 309; Add 331 331 696; Sub 582 582 331;
  Mul 331 544 582; Add 408 408 331; Add 404 404 408; Sub 404 259 404; Mul 404 4 404; Mul 812 812 1346;
  Add 404 404 812; Add 311 311 404; Mul 404 728 423; Mul 812 609 638; Add 404 404 812; Mul 812 733 1593;
  Mul 408 604 390; Add 812 812 408; Add 404 404 812; Mul 812 734 1584; Mul 408 426 1261; Add 812 812 408;
  Add 404 404 812; Mul 739 739 1563; Mul 812 438 1517; Add 739 739 812; Mul 812 816 1217; Mul 450 358 450;
  Mul 462 462 1464; Add 450 450 462; Mul 454 372 454; Mul 458 458 1577; Add 454 454 458; Sub 450 450 454;
  Mul 1466 741 1466; Mul 417 417 1527; Add 1466 1466 417; Mul 1170 736 1170; Mul 441 441 344; Add 1170 1170 441;
  Sub 1466 1466 1170; Add 450 450 1466; Mul 1466 733 1217; Mul 1170 445 390; Add 1466 1466 1170;
  Mul 1170 728 1147; Mul 441 434 638; Add 1170 1170 441; Sub 1466 1466 1170; Sub 450 450 1466; Mul 450 430 450;
  Mul 1466 445 450; Add 812 812 1466; Sub 739 739 812; Add 404 404 739; Mul 739 736 1386; Mul 812 803 344;
  Add 739 739 812; Mul 812 741 1456; Mul 1466 710 1527; Add 1170 812 1466; Mul 441 738 396; Mul 417 356 1552;
  Add 441 441 417; Add 1170 1170 441; Add 739 739 1170; Mul 1170 358 600; Mul 441 352 1464; Add 1170 1170 441;
  Mul 1544 372 1544; Mul 440 440 1577; Add 441 1544 440; Mul 417 369 1096; Mul 454 36 1600; Add 417 417 454;
  Add 441 441 417; Add 1170 1170 441; Sub 739 739 1170; Add 404 404 739; Mul 739 216 404; Mul 1170 814 207;
  Sub 739 739 1170; Mul 1170 817 1043; Mul 638 13 638; Mul 728 728 589; Sub 638 638 728; Mul 733 733 423;
  Mul 390 609 390; Add 733 733 390; Add 638 638 733; Mul 734 734 1549; Mul 1261 443 1261; Add 734 734 1261;
  Add 638 638 734; Mul 816 816 1147; Mul 734 434 450; Add 816 816 734; Mul 735 735 1563; Mul 734 438 661;
  Add 735 735 734; Sub 816 816 735; Add 638 638 816; Mul 816 736 641; Mul 735 699 344; Add 734 816 735;
  Mul 1261 741 1196; Mul 733 394 1527; Add 1261 1261 733; Mul 733 738 1053; Mul 390 245 1552; Add 733 733 390;
  Add 1261 1261 733; Add 734 734 1261; Mul 1415 358 1415; Mul 466 466 1464; Add 1261 1415 466; Mul 733 372 439;
  Mul 390 359 1577; Add 733 733 390; Mul 390 369 605; Mul 728 593 1600; Add 390 390 728; Add 733 733 390;
  Add 1261 1261 733; Sub 734 734 1261; Add 638 638 734; Mul 734 215 638; Add 1170 1170 734; Sub 734 739 1170;
  Mul 641 358 641; Mul 699 699 1464; Add 1261 641 699; Mul 733 372 1410; Mul 390 801 1577; Add 733 733 390].
Definition casadi_f0_967 : list instruction := [
  Mul 390 369 1406; Mul 728 645 1600; Add 390 390 728; Add 733 733 390; Add 1261 1261 733; Sub 1517 1517 1261;
  Mul 1261 540 1517; Mul 733 820 205; Sub 1261 1261 733; Mul 733 822 214; Mul 390 358 1075; Mul 728 457 1464;
  Add 390 390 728; Mul 1456 372 1456; Mul 710 710 1577; Add 728 1456 710; Mul 441 369 1402; Mul 417 666 1600;
  Add 441 441 417; Add 728 728 441; Add 390 390 728; Sub 661 661 390; Mul 390 544 661; Add 733 733 390;
  Add 1261 1261 733; Sub 1261 734 1261; Mul 1261 5 1261; Mul 821 821 1052; Add 1261 1261 821; Add 311 311 1261;
  Mul 85 85 269; Mul 79 79 444; Sub 85 85 79; Mul 54 54 323; Mul 61 61 383; Sub 54 54 61; Mul 31 19 31;
  Mul 763 763 1222; Sub 31 31 763; Mul 751 751 29; Mul 335 35 335; Add 751 751 335; Sub 31 31 751;
  Mul 752 55 752; Mul 324 62 324; Sub 752 752 324; Add 31 31 752; Add 54 54 31; Mul 743 86 743; Mul 66 91 66;
  Sub 743 743 66; Add 743 54 743; Add 85 85 743; Mul 773 102 773; Sub 773 85 773; Mul 101 101 212;
  Add 773 773 101; Add 311 311 773; Mul 773 777 311; Sub 1069 1069 773; Add 1072 1072 1069; Div 1069 150 92;
  Mul 1023 1023 6; Sub 1069 1069 1023; Mul 1023 767 1069; Mul 1226 674 1226; Mul 630 630 653; Sub 1226 1226 630;
  Mul 654 654 274; Mul 1267 680 1267; Add 654 654 1267; Add 687 687 96; Sub 654 654 687; Add 1226 1226 654;
  Mul 615 615 1043; Mul 565 215 565; Add 615 615 565; Mul 1443 216 1443; Mul 7 7 207; Sub 1443 1443 7;
  Sub 615 615 1443; Add 1226 1226 615; Mul 1226 0 1226; Mul 771 771 1374; Add 1226 1226 771; Mul 771 748 1558;
  Mul 615 216 501; Mul 1443 523 207; Sub 615 615 1443; Add 615 653 615; Mul 615 672 615; Mul 1443 545 615;
  Sub 771 771 1443; Mul 1443 216 1520; Mul 7 502 207; Sub 1443 1443 7; Mul 7 215 1330; Mul 565 505 1043;
  Add 7 7 565; Add 1443 1443 7; Sub 1443 1443 124; Mul 1443 672 1443; Mul 7 504 1443; Mul 565 750 197;
  Add 7 7 565; Mul 565 215 501; Mul 654 523 1043; Add 565 565 654; Sub 565 274 565; Mul 672 672 565;
  Mul 565 541 672; Mul 654 627 529; Add 565 565 654; Sub 7 7 565; Add 771 771 7; Mul 419 215 419;
  Mul 517 517 1043; Add 419 419 517; Mul 516 216 516; Mul 532 532 207; Sub 516 516 532; Sub 419 419 516;
  Mul 516 627 1520; Mul 532 502 672; Add 516 516 532; Mul 532 748 1330; Mul 517 505 615; Sub 532 532 517;
  Sub 516 516 532; Add 419 419 516; Mul 419 508 419; Mul 744 744 1654; Add 419 419 744; Mul 744 215 253;
  Mul 516 783 1043; Add 744 744 516; Mul 265 216 265; Mul 488 488 207; Sub 265 265 488; Sub 744 744 265;
  Mul 748 748 501; Mul 615 523 615; Sub 748 748 615; Mul 1520 750 1520; Mul 502 502 1443; Add 1520 1520 502;
  Sub 748 748 1520; Add 744 744 748; Mul 744 536 744].
Definition casadi_f0_968 : list instruction := [
  Mul 824 824 535; Add 744 744 824; Sub 419 419 744; Mul 127 215 127; Mul 491 491 1043; Add 127 127 491;
  Mul 253 216 253; Mul 783 783 207; Sub 253 253 783; Sub 127 127 253; Mul 750 750 1330; Mul 505 505 1443;
  Add 750 750 505; Mul 627 627 501; Mul 523 523 672; Add 627 627 523; Sub 750 750 627; Add 127 127 750;
  Mul 127 526 127; Mul 825 825 208; Add 127 127 825; Sub 419 419 127; Add 771 771 419; Mul 1467 674 1467;
  Mul 792 792 653; Sub 1467 1467 792; Add 41 41 469; Mul 469 298 124; Sub 1093 1093 1455; Sub 1110 1110 1542;
  Sub 1450 1450 1646; Sub 1521 1521 1439; Add 1450 1450 1521; Add 1110 1110 1450; Add 1093 1093 1110;
  Mul 1439 676 1093; Add 469 469 1439; Sub 41 41 469; Add 1467 1467 41; Mul 468 468 1043; Mul 276 215 276;
  Add 468 468 276; Sub 468 468 1574; Add 1467 1467 468; Mul 1467 216 1467; Mul 823 823 207; Sub 1467 1467 823;
  Mul 686 686 274; Mul 282 680 282; Add 686 686 282; Mul 282 232 124; Add 291 291 1185; Add 1106 1106 1620;
  Add 400 400 1497; Add 453 453 1468; Add 400 400 453; Add 1106 1106 400; Add 291 291 1106; Mul 1468 676 291;
  Add 282 282 1468; Sub 686 686 282; Add 796 796 686; Add 303 303 138; Mul 308 216 308; Mul 461 461 207;
  Sub 308 308 461; Sub 303 303 308; Add 796 796 303; Mul 796 215 796; Mul 668 668 1043; Add 796 796 668;
  Sub 1467 1467 796; Add 682 682 111; Mul 146 216 146; Mul 794 794 207; Sub 146 146 794; Sub 682 682 146;
  Mul 682 540 682; Mul 664 664 205; Sub 682 682 664; Mul 808 808 1043; Mul 132 215 132; Add 808 808 132;
  Sub 808 808 1482; Mul 808 544 808; Mul 642 642 214; Add 808 808 642; Add 682 682 808; Sub 1467 1467 682;
  Add 771 771 1467; Mul 771 1 771; Mul 760 760 1377; Add 771 771 760; Add 1226 1226 771; Mul 290 674 290;
  Mul 233 233 653; Sub 290 290 233; Mul 789 789 274; Mul 1535 680 1535; Add 789 789 1535; Mul 637 637 124;
  Mul 291 215 291; Mul 232 232 1043; Add 291 291 232; Mul 1093 216 1093; Mul 298 298 207; Sub 1093 1093 298;
  Sub 291 291 1093; Add 287 287 291; Mul 287 676 287; Add 637 637 287; Sub 789 789 637; Add 290 290 789;
  Sub 793 793 520; Add 290 290 793; Mul 290 2 290; Mul 826 826 1373; Add 290 290 826; Add 1226 1226 290;
  Mul 290 674 1041; Mul 826 697 653; Sub 290 290 826; Mul 826 695 274; Mul 793 680 1114; Add 826 826 793;
  Mul 793 647 124; Mul 520 216 1110; Mul 789 411 207; Sub 520 520 789; Mul 789 215 1106; Mul 637 302 1043;
  Add 789 789 637; Sub 520 520 789; Add 125 125 520; Mul 520 676 125; Add 793 793 520; Sub 826 826 793;
  Add 290 290 826; Sub 704 704 707; Add 290 290 704; Mul 290 3 290; Mul 347 347 1561; Add 290 290 347;
  Add 1226 1226 290; Mul 290 674 399; Mul 347 811 653; Sub 290 290 347; Mul 347 813 274; Mul 704 680 582].
Definition casadi_f0_969 : list instruction := [
  Add 347 347 704; Mul 704 802 124; Mul 707 310 400; Mul 826 252 289; Add 707 707 826; Mul 826 327 1450;
  Mul 793 339 46; Add 826 826 793; Mul 1388 318 1388; Mul 701 701 75; Add 793 1388 701; Add 826 826 793;
  Add 707 707 826; Sub 256 256 707; Mul 707 676 256; Add 704 704 707; Sub 347 347 704; Add 290 290 347;
  Sub 387 387 730; Add 290 290 387; Mul 290 4 290; Mul 698 698 1346; Add 290 290 698; Add 1226 1226 290;
  Mul 290 674 1517; Mul 698 820 653; Sub 290 290 698; Mul 698 822 274; Mul 387 680 661; Add 698 698 387;
  Mul 387 788 124; Mul 730 358 453; Mul 347 234 1464; Add 730 730 347; Mul 347 372 1521; Mul 704 355 1577;
  Add 347 347 704; Mul 1523 369 1523; Mul 708 708 1600; Add 704 1523 708; Add 347 347 704; Add 730 730 347;
  Sub 450 450 730; Mul 730 676 450; Add 387 387 730; Sub 698 698 387; Add 290 290 698; Sub 1170 1170 739;
  Add 290 290 1170; Mul 290 5 290; Mul 809 809 1052; Add 290 290 809; Add 1226 1226 290; Sub 85 85 1226;
  Mul 1226 778 85; Add 1023 1023 1226; Sub 1072 1072 1023; Div 1023 1050 92; Mul 1516 1516 6;
  Sub 1023 1023 1516; Mul 1516 775 1023; Add 694 694 1590; Mul 658 658 273; Mul 1511 718 1511; Add 658 658 1511;
  Sub 694 694 658; Mul 635 635 552; Mul 1333 714 1333; Add 635 635 1333; Sub 694 694 635; Mul 1675 216 1675;
  Mul 90 90 207; Sub 1675 1675 90; Mul 566 566 1043; Mul 579 215 579; Add 566 566 579; Sub 1675 1675 566;
  Add 694 694 1675; Mul 694 0 694; Mul 818 818 1374; Add 694 694 818; Mul 818 216 493; Mul 1675 519 207;
  Sub 818 818 1675; Sub 818 818 552; Mul 818 156 818; Mul 1675 545 818; Mul 566 684 1558; Add 1675 1675 566;
  Mul 566 216 71; Mul 579 494 207; Sub 566 566 579; Mul 579 215 149; Mul 90 497 1043; Add 579 579 90;
  Add 566 566 579; Sub 566 68 566; Mul 566 156 566; Mul 579 504 566; Mul 90 660 197; Add 579 579 90;
  Mul 90 215 493; Mul 635 519 1043; Add 90 90 635; Sub 90 90 273; Mul 90 156 90; Mul 635 541 90;
  Mul 1333 827 529; Add 635 635 1333; Sub 579 579 635; Add 1675 1675 579; Mul 512 216 512; Mul 530 530 207;
  Sub 512 512 530; Mul 313 215 313; Mul 513 513 1043; Add 313 313 513; Sub 512 512 313; Mul 313 827 71;
  Mul 513 494 90; Add 313 313 513; Mul 513 684 149; Mul 530 497 818; Add 513 513 530; Sub 313 313 513;
  Add 512 512 313; Mul 313 508 512; Mul 513 656 1654; Add 313 313 513; Mul 319 216 319; Mul 481 481 207;
  Sub 319 319 481; Mul 481 215 304; Mul 513 782 1043; Add 481 481 513; Sub 319 319 481; Mul 481 684 493;
  Mul 513 519 818; Add 481 481 513; Mul 71 660 71; Mul 494 494 566; Add 71 71 494; Sub 481 481 71;
  Add 319 319 481; Mul 481 536 319; Mul 71 829 535; Add 481 481 71; Sub 313 313 481; Mul 304 216 304].
Definition casadi_f0_970 : list instruction := [
  Mul 782 782 207; Sub 304 304 782; Mul 128 215 128; Mul 483 483 1043; Add 128 128 483; Sub 304 304 128;
  Mul 149 660 149; Mul 497 497 566; Add 149 149 497; Mul 493 827 493; Mul 519 519 90; Add 493 493 519;
  Sub 149 149 493; Add 304 304 149; Mul 149 526 304; Mul 493 830 208; Add 149 149 493; Sub 313 313 149;
  Add 1675 1675 313; Mul 411 411 68; Mul 1110 716 1110; Add 411 411 1110; Add 152 152 285; Sub 411 411 152;
  Mul 795 795 552; Mul 1159 714 1159; Add 795 795 1159; Sub 411 411 795; Mul 416 416 1043; Mul 330 215 330;
  Add 416 416 330; Sub 126 126 416; Add 411 411 126; Mul 411 216 411; Mul 828 828 207; Sub 411 411 828;
  Mul 302 302 68; Mul 1106 716 1106; Add 302 302 1106; Mul 448 448 273; Mul 336 718 336; Add 448 448 336;
  Sub 302 302 448; Add 719 719 711; Sub 302 302 719; Mul 573 216 573; Mul 414 414 207; Sub 573 573 414;
  Add 357 357 1066; Sub 573 573 357; Add 302 302 573; Mul 302 215 302; Mul 832 832 1043; Add 302 302 832;
  Sub 832 411 302; Mul 38 216 38; Mul 797 797 207; Sub 38 38 797; Add 685 685 52; Sub 38 38 685; Mul 685 540 38;
  Mul 52 835 205; Sub 685 685 52; Mul 415 415 1043; Mul 116 215 116; Add 415 415 116; Sub 281 281 415;
  Mul 415 544 281; Mul 116 837 214; Add 415 415 116; Add 685 685 415; Sub 832 832 685; Add 1675 1675 832;
  Mul 1675 1 1675; Mul 632 632 1377; Add 1675 1675 632; Add 694 694 1675; Mul 818 678 818; Mul 684 684 139;
  Add 818 818 684; Mul 90 673 90; Mul 827 827 492; Add 90 90 827; Mul 566 799 566; Mul 660 660 247;
  Add 566 566 660; Add 90 90 566; Add 818 818 90; Mul 304 602 304; Mul 830 830 509; Add 304 304 830;
  Mul 319 670 319; Mul 829 829 1139; Add 319 319 829; Mul 512 671 512; Mul 656 656 236; Add 512 512 656;
  Sub 319 319 512; Add 304 304 319; Add 818 818 304; Mul 38 674 38; Mul 835 835 653; Sub 38 38 835;
  Mul 281 680 281; Mul 837 837 274; Add 281 281 837; Mul 155 216 155; Mul 403 403 207; Sub 155 155 403;
  Mul 293 293 1043; Mul 1176 215 1176; Add 293 293 1176; Sub 155 155 293; Mul 155 676 155; Mul 839 839 124;
  Add 155 155 839; Sub 281 281 155; Add 38 38 281; Sub 302 302 411; Add 38 38 302; Add 818 818 38;
  Mul 818 2 818; Mul 834 834 1373; Add 818 818 834; Add 694 694 818; Mul 647 647 68; Mul 125 716 125;
  Add 647 647 125; Mul 695 695 273; Mul 1114 718 1114; Add 695 695 1114; Sub 647 647 695; Mul 697 697 552;
  Mul 1041 714 1041; Add 697 697 1041; Sub 647 647 697; Add 647 647 790; Mul 647 3 647; Mul 836 836 1561;
  Add 647 647 836; Add 694 694 647; Mul 647 802 68; Mul 836 716 256; Add 647 647 836; Mul 836 813 273;
  Mul 790 718 582; Add 836 836 790; Sub 647 647 836; Mul 836 811 552].
Definition casadi_f0_971 : list instruction := [
  Mul 790 714 399; Add 836 836 790; Sub 647 647 836; Add 647 647 259; Mul 647 4 647; Mul 702 702 1346;
  Add 647 647 702; Add 694 694 647; Mul 647 788 68; Mul 702 716 450; Add 647 647 702; Mul 702 822 273;
  Mul 259 718 661; Add 702 702 259; Sub 647 647 702; Mul 702 820 552; Mul 259 714 1517; Add 702 702 259;
  Sub 647 647 702; Add 647 647 734; Mul 647 5 647; Mul 810 810 1052; Add 647 647 810; Add 694 694 647;
  Add 694 694 54; Mul 54 769 694; Sub 1516 1516 54; Add 1072 1072 1516; Div 1516 1070 92; Mul 1637 1637 6;
  Sub 1516 1516 1637; Mul 1637 815 1516; Mul 640 640 1509; Mul 1595 725 1595; Add 640 640 1595;
  Mul 662 662 1128; Mul 1597 731 1597; Add 662 662 1597; Add 1329 1329 379; Add 662 662 1329; Add 640 640 662;
  Mul 580 580 289; Mul 592 310 592; Add 580 580 592; Mul 59 59 46; Mul 1361 327 1361; Add 59 59 1361;
  Add 395 395 1555; Add 59 59 395; Add 580 580 59; Sub 640 640 580; Mul 640 0 640; Mul 819 819 1374;
  Add 640 640 819; Mul 819 327 485; Mul 580 515 46; Add 819 819 580; Mul 580 318 1701; Mul 59 489 75;
  Add 580 580 59; Sub 819 819 580; Sub 819 1509 819; Mul 819 723 819; Mul 580 545 819; Mul 59 831 1558;
  Add 580 580 59; Mul 59 310 1701; Mul 395 489 289; Add 59 59 395; Mul 395 327 371; Mul 1555 486 46;
  Add 395 395 1555; Sub 59 59 395; Sub 59 1025 59; Mul 59 723 59; Mul 395 504 59; Mul 1555 840 197;
  Add 395 395 1555; Mul 1555 318 371; Mul 1361 486 75; Add 1555 1555 1361; Mul 1361 310 485; Mul 592 515 289;
  Add 1361 1361 592; Sub 1555 1555 1361; Sub 1555 1128 1555; Mul 723 723 1555; Mul 1555 541 723;
  Mul 1361 842 529; Add 1555 1555 1361; Sub 395 395 1555; Add 580 580 395; Mul 395 842 371; Mul 1555 486 723;
  Add 395 395 1555; Mul 1555 831 1701; Mul 1361 489 819; Add 1555 1555 1361; Sub 395 395 1555; Mul 1555 310 500;
  Mul 1361 510 289; Add 1555 1555 1361; Mul 1361 327 218; Mul 592 528 46; Add 1361 1361 592; Add 1555 1555 1361;
  Mul 425 318 425; Mul 479 479 75; Add 425 425 479; Add 1555 1555 425; Sub 395 395 1555; Mul 1555 508 395;
  Mul 425 841 1654; Add 1555 1555 425; Mul 425 831 485; Mul 479 515 819; Add 425 425 479; Mul 371 840 371;
  Mul 486 486 59; Add 371 371 486; Sub 425 425 371; Mul 371 310 368; Mul 486 606 289; Add 371 371 486;
  Mul 1696 327 1696; Mul 786 786 46; Add 1696 1696 786; Add 371 371 1696; Mul 218 318 218; Mul 528 528 75;
  Add 218 218 528; Add 371 371 218; Sub 425 425 371; Mul 371 536 425; Mul 218 844 535; Add 371 371 218;
  Sub 1555 1555 371; Mul 1701 840 1701; Mul 489 489 59; Add 1701 1701 489; Mul 485 842 485; Mul 515 515 723;
  Add 485 485 515; Sub 1701 1701 485; Mul 20 310 20; Mul 705 705 289; Add 20 20 705; Mul 368 327 368;
  Mul 606 606 46].
Definition casadi_f0_972 : list instruction := [
  Add 368 368 606; Add 20 20 368; Mul 500 318 500; Mul 510 510 75; Add 500 500 510; Add 20 20 500;
  Sub 1701 1701 20; Mul 20 526 1701; Mul 500 845 208; Add 20 20 500; Sub 1555 1555 20; Add 580 580 1555;
  Add 692 692 1635; Mul 800 800 46; Mul 1269 327 1269; Add 800 800 1269; Mul 643 643 75; Mul 1251 318 1251;
  Add 643 643 1251; Add 800 800 643; Add 692 692 800; Mul 800 540 692; Mul 643 843 205; Sub 800 800 643;
  Mul 465 465 289; Mul 1476 310 1476; Add 465 465 1476; Add 703 703 1271; Mul 665 665 75; Mul 1565 318 1565;
  Add 665 665 1565; Add 703 703 665; Add 465 465 703; Mul 703 544 465; Mul 665 847 214; Add 703 703 665;
  Add 800 800 703; Mul 798 798 1509; Mul 1175 725 1175; Add 798 798 1175; Add 1171 1171 691; Mul 339 339 1025;
  Mul 1450 727 1450; Add 339 339 1450; Add 1171 1171 339; Add 798 798 1171; Mul 407 407 289; Mul 385 310 385;
  Add 407 407 385; Add 386 386 1280; Mul 595 595 75; Mul 376 318 376; Add 595 595 376; Add 386 386 595;
  Add 407 407 386; Sub 798 798 407; Mul 798 216 798; Mul 848 848 207; Sub 798 798 848; Add 726 726 683;
  Mul 464 464 1128; Mul 391 731 391; Add 464 464 391; Mul 252 252 1025; Mul 400 727 400; Add 252 252 400;
  Add 464 464 252; Add 726 726 464; Add 412 412 1412; Mul 361 361 46; Mul 587 327 587; Add 361 361 587;
  Mul 620 620 75; Mul 1385 318 1385; Add 620 620 1385; Add 361 361 620; Add 412 412 361; Sub 726 726 412;
  Mul 726 215 726; Mul 850 850 1043; Add 726 726 850; Sub 850 798 726; Add 800 800 850; Add 580 580 800;
  Mul 580 1 580; Mul 838 838 1377; Add 580 580 838; Add 640 640 580; Mul 580 678 819; Mul 838 831 139;
  Add 580 580 838; Mul 838 673 723; Mul 800 842 492; Add 838 838 800; Mul 800 799 59; Mul 412 840 247;
  Add 800 800 412; Add 838 838 800; Add 580 580 838; Mul 838 602 1701; Mul 800 845 509; Add 838 838 800;
  Mul 800 670 425; Mul 412 844 1139; Add 800 800 412; Mul 412 671 395; Mul 361 841 236; Add 412 412 361;
  Sub 800 800 412; Add 838 838 800; Add 580 580 838; Mul 785 785 289; Mul 1401 310 1401; Add 785 785 1401;
  Mul 306 306 46; Mul 398 327 398; Add 306 306 398; Add 701 701 1388; Add 306 306 701; Add 785 785 306;
  Mul 306 676 785; Mul 701 853 124; Add 306 306 701; Mul 701 680 465; Mul 1388 847 274; Add 701 701 1388;
  Sub 306 306 701; Mul 701 674 692; Mul 1388 843 653; Sub 701 701 1388; Sub 306 306 701; Sub 726 726 798;
  Add 306 306 726; Add 580 580 306; Mul 580 2 580; Mul 846 846 1373; Add 580 580 846; Add 640 640 580;
  Mul 819 717 819; Mul 831 831 1322; Add 819 819 831; Mul 59 787 59; Mul 840 840 1684; Add 59 59 840;
  Mul 723 713 723; Mul 842 842 60; Add 723 723 842; Sub 59 59 723; Add 819 819 59].
Definition casadi_f0_973 : list instruction := [
  Mul 395 677 395; Mul 841 841 173; Add 395 395 841; Mul 425 712 425; Mul 844 844 1372; Add 425 425 844;
  Sub 395 395 425; Mul 1701 706 1701; Mul 845 845 649; Add 1701 1701 845; Sub 395 395 1701; Add 819 819 395;
  Mul 692 714 692; Mul 843 843 552; Add 692 692 843; Mul 465 718 465; Mul 847 847 273; Add 465 465 847;
  Mul 785 716 785; Mul 853 853 68; Add 785 785 853; Sub 465 465 785; Add 692 692 465; Add 692 692 850;
  Add 819 819 692; Mul 819 3 819; Mul 854 854 1561; Add 819 819 854; Add 640 640 819; Mul 811 811 1509;
  Mul 399 725 399; Add 811 811 399; Mul 813 813 1128; Mul 582 731 582; Add 813 813 582; Mul 802 802 1025;
  Mul 256 727 256; Add 802 802 256; Add 813 813 802; Add 811 811 813; Mul 807 807 289; Mul 363 310 363;
  Add 807 807 363; Mul 690 690 46; Mul 709 327 709; Add 690 690 709; Mul 720 720 75; Mul 424 318 424;
  Add 720 720 424; Add 690 690 720; Add 807 807 690; Sub 811 811 807; Mul 811 4 811; Mul 851 851 1346;
  Add 811 811 851; Add 640 640 811; Mul 811 820 1509; Mul 851 725 1517; Add 811 811 851; Mul 851 822 1128;
  Mul 807 731 661; Add 851 851 807; Mul 807 788 1025; Mul 690 727 450; Add 807 807 690; Add 851 851 807;
  Add 811 811 851; Mul 851 817 289; Mul 807 310 638; Add 851 851 807; Mul 807 814 46; Mul 690 327 404;
  Add 807 807 690; Mul 690 732 75; Mul 720 318 484; Add 690 690 720; Add 807 807 690; Add 851 851 807;
  Sub 811 811 851; Mul 811 5 811; Mul 852 852 1052; Add 811 811 852; Add 640 640 811; Sub 380 380 640;
  Mul 640 761 380; Add 1637 1637 640; Add 1072 1072 1637; Div 1637 1059 92; Mul 1619 1619 6; Sub 1637 1637 1619;
  Mul 1619 833 1637; Mul 645 645 344; Mul 1406 736 1406; Add 645 645 1406; Mul 666 666 1527; Mul 1402 741 1402;
  Add 666 666 1402; Add 1393 1393 451; Add 666 666 1393; Add 645 645 666; Mul 593 593 1464; Mul 605 358 605;
  Add 593 593 605; Mul 36 36 1577; Mul 1096 372 1096; Add 36 36 1096; Add 449 449 1578; Add 36 36 449;
  Add 593 593 36; Sub 645 645 593; Mul 0 0 645; Mul 1374 849 1374; Add 0 0 1374; Mul 1374 372 1563;
  Mul 593 438 1577; Add 1374 1374 593; Mul 593 369 1147; Mul 36 434 1600; Add 593 593 36; Sub 1374 1374 593;
  Sub 1374 344 1374; Mul 1374 430 1374; Mul 545 545 1374; Mul 1558 856 1558; Add 545 545 1558;
  Mul 1558 358 1147; Mul 593 434 1464; Add 1558 1558 593; Mul 593 372 1217; Mul 36 445 1577; Add 593 593 36;
  Sub 1558 1558 593; Sub 1558 1552 1558; Mul 1558 430 1558; Mul 504 504 1558; Mul 197 858 197; Add 504 504 197;
  Mul 197 369 1217; Mul 593 445 1600; Add 197 197 593; Mul 593 358 1563; Mul 36 438 1464; Add 593 593 36;
  Sub 197 197 593; Sub 197 1527 197; Mul 430 430 197; Mul 541 541 430; Mul 529 860 529; Add 541 541 529].
Definition casadi_f0_974 : list instruction := [
  Sub 504 504 541; Add 545 545 504; Mul 504 860 1217; Mul 541 445 430; Add 504 504 541; Mul 541 856 1147;
  Mul 529 434 1374; Add 541 541 529; Sub 504 504 541; Mul 541 358 1549; Mul 529 443 1464; Add 541 541 529;
  Mul 529 372 1584; Mul 197 426 1577; Add 529 529 197; Add 541 541 529; Mul 1224 369 1224; Mul 478 478 1600;
  Add 1224 1224 478; Add 541 541 1224; Sub 504 504 541; Mul 508 508 504; Mul 1654 859 1654; Add 508 508 1654;
  Mul 1654 856 1563; Mul 541 438 1374; Add 1654 1654 541; Mul 1217 858 1217; Mul 445 445 1558;
  Add 1217 1217 445; Sub 1654 1654 1217; Mul 1217 358 423; Mul 445 609 1464; Add 1217 1217 445;
  Mul 1593 372 1593; Mul 604 604 1577; Add 1593 1593 604; Add 1217 1217 1593; Mul 1584 369 1584;
  Mul 426 426 1600; Add 1584 1584 426; Add 1217 1217 1584; Sub 1654 1654 1217; Mul 536 536 1654;
  Mul 535 862 535; Add 536 536 535; Sub 508 508 536; Mul 1147 858 1147; Mul 434 434 1558; Add 1147 1147 434;
  Mul 1563 860 1563; Mul 438 438 430; Add 1563 1563 438; Sub 1147 1147 1563; Mul 13 13 1464; Mul 589 358 589;
  Sub 13 13 589; Mul 423 372 423; Mul 609 609 1577; Add 423 423 609; Add 13 13 423; Mul 1549 369 1549;
  Mul 443 443 1600; Add 1549 1549 443; Add 13 13 1549; Sub 1147 1147 13; Mul 526 526 1147; Mul 208 863 208;
  Add 526 526 208; Sub 508 508 526; Add 545 545 508; Add 699 699 641; Mul 803 803 1577; Mul 1386 372 1386;
  Add 803 803 1386; Mul 648 648 1600; Mul 1320 369 1320; Add 648 648 1320; Add 803 803 648; Add 699 699 803;
  Mul 540 540 699; Mul 205 861 205; Sub 540 540 205; Mul 394 394 1464; Mul 1196 358 1196; Add 394 394 1196;
  Add 710 710 1456; Mul 669 669 1600; Mul 1140 369 1140; Add 669 669 1140; Add 710 710 669; Add 394 394 710;
  Mul 544 544 394; Mul 214 865 214; Add 544 544 214; Add 540 540 544; Mul 801 801 344; Mul 1410 736 1410;
  Add 801 801 1410; Add 1466 1466 812; Mul 355 355 1552; Mul 1521 738 1521; Add 355 355 1521; Add 1466 1466 355;
  Add 801 801 1466; Mul 359 359 1464; Mul 439 358 439; Add 359 359 439; Add 440 440 1544; Mul 608 608 1600;
  Mul 14 369 14; Add 608 608 14; Add 440 440 608; Add 359 359 440; Sub 801 801 359; Mul 216 216 801;
  Mul 207 866 207; Sub 216 216 207; Add 735 735 816; Mul 457 457 1527; Mul 1075 741 1075; Add 457 457 1075;
  Mul 234 234 1552; Mul 453 738 453; Add 234 234 453; Add 457 457 234; Add 735 735 457; Add 466 466 1415;
  Mul 352 352 1577; Mul 600 372 600; Add 352 352 600; Mul 622 622 1600; Mul 1136 369 1136; Add 622 622 1136;
  Add 352 352 622; Add 466 466 352; Sub 735 735 466; Mul 215 215 735; Mul 1043 868 1043; Add 215 215 1043;
  Sub 1043 216 215; Add 540 540 1043; Add 545 545 540; Mul 1 1 545; Mul 857 857 1377; Add 1 1 857; Add 0 0 1;
  Mul 678 678 1374; Mul 139 856 139].
Definition casadi_f0_975 : list instruction := [
  Add 678 678 139; Mul 673 673 430; Mul 492 860 492; Add 673 673 492; Mul 799 799 1558; Mul 247 858 247;
  Add 799 799 247; Add 673 673 799; Add 678 678 673; Mul 602 602 1147; Mul 509 863 509; Add 602 602 509;
  Mul 670 670 1654; Mul 1139 862 1139; Add 670 670 1139; Mul 671 671 504; Mul 236 859 236; Add 671 671 236;
  Sub 670 670 671; Add 602 602 670; Add 678 678 602; Mul 245 245 1464; Mul 1053 358 1053; Add 245 245 1053;
  Mul 356 356 1577; Mul 396 372 396; Add 356 356 396; Add 708 708 1523; Add 356 356 708; Add 245 245 356;
  Mul 676 676 245; Mul 124 871 124; Add 676 676 124; Mul 680 680 394; Mul 274 865 274; Add 680 680 274;
  Sub 676 676 680; Mul 674 674 699; Mul 653 861 653; Sub 674 674 653; Sub 676 676 674; Sub 215 215 216;
  Add 676 676 215; Add 678 678 676; Mul 2 2 678; Mul 864 864 1373; Add 2 2 864; Add 0 0 2; Mul 717 717 1374;
  Mul 1322 856 1322; Add 717 717 1322; Mul 787 787 1558; Mul 1684 858 1684; Add 787 787 1684; Mul 713 713 430;
  Mul 60 860 60; Add 713 713 60; Sub 787 787 713; Add 717 717 787; Mul 677 677 504; Mul 173 859 173;
  Add 677 677 173; Mul 712 712 1654; Mul 1372 862 1372; Add 712 712 1372; Sub 677 677 712; Mul 706 706 1147;
  Mul 649 863 649; Add 706 706 649; Sub 677 677 706; Add 717 717 677; Mul 714 714 699; Mul 552 861 552;
  Add 714 714 552; Mul 718 718 394; Mul 273 865 273; Add 718 718 273; Mul 716 716 245; Mul 68 871 68;
  Add 716 716 68; Sub 718 718 716; Add 714 714 718; Add 714 714 1043; Add 717 717 714; Mul 3 3 717;
  Mul 872 872 1561; Add 3 3 872; Add 0 0 3; Mul 729 729 1374; Mul 856 856 1115; Add 729 729 856;
  Mul 724 724 430; Mul 860 860 618; Add 724 724 860; Mul 688 688 1558; Mul 858 858 397; Add 688 688 858;
  Add 724 724 688; Add 729 729 724; Mul 715 715 1147; Mul 863 863 681; Add 715 715 863; Mul 721 721 1654;
  Mul 862 862 264; Add 721 721 862; Mul 722 722 504; Mul 859 859 1028; Add 722 722 859; Add 721 721 722;
  Add 715 715 721; Add 729 729 715; Mul 725 725 699; Mul 861 861 1509; Add 725 725 861; Mul 731 731 394;
  Mul 865 865 1128; Add 731 731 865; Mul 727 727 245; Mul 871 871 1025; Add 727 727 871; Add 731 731 727;
  Add 725 725 731; Mul 310 310 735; Mul 868 868 289; Add 310 310 868; Mul 327 327 801; Mul 866 866 46;
  Add 327 327 866; Mul 318 318 645; Mul 849 849 75; Add 318 318 849; Add 327 327 318; Add 310 310 327;
  Add 725 725 310; Sub 729 729 725; Mul 4 4 729; Mul 869 869 1346; Add 4 4 869; Add 0 0 4; Mul 820 820 344;
  Mul 736 736 1517; Add 820 820 736; Mul 822 822 1527; Mul 741 741 661; Add 822 822 741; Mul 788 788 1552;
  Mul 738 738 450; Add 788 788 738; Add 822 822 788].
Definition casadi_f0_976 : list instruction := [
  Add 820 820 822; Mul 817 817 1464; Mul 358 358 638; Add 817 817 358; Mul 814 814 1577; Mul 372 372 404;
  Add 814 814 372; Mul 732 732 1600; Mul 369 369 484; Add 732 732 369; Add 814 814 732; Add 817 817 814;
  Sub 820 820 817; Mul 5 5 820; Mul 870 870 1052; Add 5 5 870; Add 0 0 5; Sub 746 746 0; Mul 0 754 746;
  Add 1619 1619 0; Add 1072 1072 1619; Mul 1619 210 1059; Mul 200 200 122; Add 1619 1619 200; Mul 170 19 170;
  Mul 196 196 1222; Sub 170 170 196; Mul 189 189 29; Mul 181 35 181; Sub 189 189 181; Sub 170 170 189;
  Mul 194 55 194; Mul 62 62 184; Add 194 194 62; Add 170 170 194; Mul 193 86 193; Mul 191 91 191;
  Add 193 193 191; Add 193 170 193; Mul 206 102 206; Sub 206 193 206; Mul 191 777 206; Mul 194 209 114;
  Add 191 191 194; Add 1619 1619 191; Mul 191 778 193; Mul 194 867 1069; Add 191 191 194; Add 1619 1619 191;
  Mul 191 769 170; Mul 194 855 1023; Add 191 191 194; Add 1619 1619 191; Mul 191 761 183; Mul 194 201 1516;
  Add 191 191 194; Sub 1619 1619 191; Mul 873 873 1637; Add 1619 1619 873; Mul 873 1006 1619; Mul 191 210 1619;
  Mul 194 756 122; Add 191 191 194; Sub 1059 1059 191; Mul 191 881 1059; Mul 194 210 97; Mul 143 143 122;
  Add 194 194 143; Sub 30 30 1514; Sub 1039 1039 64; Mul 37 37 1039; Add 30 30 37; Sub 1054 1054 93;
  Mul 80 80 1054; Add 80 30 80; Sub 1044 1044 33; Mul 100 100 1044; Add 100 80 100; Mul 1064 1064 1058;
  Mul 1061 1061 118; Add 1064 1064 1061; Mul 141 141 1064; Add 100 100 141; Mul 141 777 100; Mul 876 876 114;
  Add 141 141 876; Add 194 194 141; Mul 151 151 11; Mul 103 103 147; Add 151 151 103; Mul 148 148 1408;
  Mul 105 105 134; Add 148 148 105; Sub 151 151 148; Sub 151 151 80; Mul 88 102 88; Sub 88 151 88;
  Mul 80 778 88; Mul 148 153 1069; Add 80 80 148; Sub 194 194 80; Mul 1057 1057 1265; Mul 1065 1065 21;
  Sub 1057 1057 1065; Mul 156 156 1057; Add 30 30 156; Mul 158 86 158; Mul 166 91 166; Sub 158 158 166;
  Add 158 30 158; Mul 165 102 165; Sub 165 158 165; Mul 166 769 165; Mul 156 171 1023; Add 166 166 156;
  Add 194 194 166; Mul 180 180 29; Mul 35 35 51; Add 180 180 35; Mul 19 19 56; Mul 182 182 1222; Sub 19 19 182;
  Sub 180 180 19; Mul 55 55 163; Add 180 180 55; Mul 86 86 17; Mul 91 91 178; Add 86 86 91; Add 86 180 86;
  Mul 102 102 185; Sub 102 86 102; Mul 185 761 102; Mul 91 188 1516; Add 185 185 91; Add 194 194 185;
  Mul 185 754 206; Mul 209 209 1637; Add 185 185 209; Add 194 194 185; Mul 185 210 194; Mul 209 875 122;
  Add 185 185 209; Sub 97 97 185; Div 185 97 65; Mul 89 89 97; Mul 97 777 194; Mul 209 875 114; Add 97 97 209;
  Sub 100 100 97].
Definition casadi_f0_977 : list instruction := [
  Mul 58 58 100; Add 89 89 58; Mul 58 778 194; Mul 97 875 1069; Add 58 58 97; Add 58 88 58; Mul 45 45 58;
  Add 89 89 45; Mul 45 769 194; Mul 97 875 1023; Add 45 45 97; Sub 45 165 45; Mul 22 22 45; Add 89 89 22;
  Mul 22 761 194; Mul 97 875 1516; Add 22 22 97; Sub 22 102 22; Mul 879 879 22; Add 89 89 879; Mul 879 754 194;
  Mul 97 875 1637; Add 879 879 97; Sub 879 206 879; Mul 880 880 879; Add 89 89 880; Div 89 89 1045;
  Mul 1078 1078 89; Sub 185 185 1078; Mul 874 874 185; Add 191 191 874; Mul 874 777 1619; Mul 1078 756 114;
  Add 874 874 1078; Sub 206 206 874; Mul 874 884 206; Div 100 100 65; Mul 1029 1029 89; Sub 100 100 1029;
  Mul 883 883 100; Add 874 874 883; Add 191 191 874; Mul 874 778 1619; Mul 883 756 1069; Add 874 874 883;
  Sub 874 874 193; Mul 883 886 874; Div 58 58 65; Mul 1063 1063 89; Sub 58 58 1063; Mul 885 885 58;
  Add 883 883 885; Add 191 191 883; Mul 883 769 1619; Mul 885 756 1023; Add 883 883 885; Sub 883 170 883;
  Mul 885 888 883; Div 45 45 65; Mul 1040 1040 89; Sub 45 45 1040; Mul 887 887 45; Add 885 885 887;
  Add 191 191 885; Mul 885 761 1619; Mul 887 756 1516; Add 885 885 887; Add 885 183 885; Mul 887 890 885;
  Div 22 22 65; Mul 1027 1027 89; Sub 22 22 1027; Mul 889 889 22; Add 887 887 889; Sub 191 191 887;
  Div 879 879 65; Mul 1046 1046 89; Sub 879 879 1046; Mul 891 891 879; Mul 1619 754 1619; Mul 1046 756 1637;
  Add 1619 1619 1046; Mul 1046 892 1619; Sub 891 891 1046; Add 191 191 891; Mul 891 881 191; Mul 1046 882 185;
  Add 891 891 1046; Sub 1059 1059 891; Mul 891 884 191; Mul 1046 882 100; Add 891 891 1046; Sub 206 206 891;
  Mul 891 910 206; Mul 1046 777 88; Mul 153 153 114; Add 1046 1046 153; Mul 153 210 150; Mul 154 154 122;
  Add 153 153 154; Sub 1046 1046 153; Mul 153 778 151; Mul 106 106 1069; Add 153 153 106; Add 1046 1046 153;
  Mul 153 769 158; Mul 106 877 1023; Add 153 153 106; Sub 1046 1046 153; Mul 153 761 86; Mul 106 94 1516;
  Add 153 153 106; Sub 1046 1046 153; Mul 153 754 193; Mul 867 867 1637; Add 153 153 867; Sub 1046 1046 153;
  Mul 153 777 1046; Mul 867 895 114; Add 153 153 867; Sub 88 88 153; Mul 153 884 88; Mul 896 896 100;
  Add 153 153 896; Mul 896 210 1046; Mul 867 895 122; Add 896 896 867; Add 150 150 896; Mul 896 881 150;
  Mul 898 898 185; Add 896 896 898; Sub 153 153 896; Mul 896 778 1046; Mul 898 895 1069; Add 896 896 898;
  Sub 896 896 151; Mul 151 886 896; Mul 899 899 58; Add 151 151 899; Add 153 153 151; Mul 151 769 1046;
  Mul 899 895 1023; Add 151 151 899; Add 151 158 151; Mul 899 888 151; Mul 900 900 45; Add 899 899 900;
  Sub 153 153 899; Mul 899 761 1046].
Definition casadi_f0_978 : list instruction := [
  Mul 900 895 1516; Add 899 899 900; Add 899 86 899; Mul 900 890 899; Mul 901 901 22; Add 900 900 901;
  Sub 153 153 900; Mul 900 754 1046; Mul 901 895 1637; Add 900 900 901; Add 193 193 900; Mul 900 892 193;
  Mul 902 902 879; Add 900 900 902; Sub 153 153 900; Mul 900 884 153; Mul 902 897 100; Add 900 900 902;
  Sub 88 88 900; Div 900 88 905; Mul 902 881 153; Mul 901 897 185; Add 902 902 901; Add 150 150 902;
  Mul 904 904 150; Mul 903 903 88; Add 904 904 903; Mul 903 886 153; Mul 88 897 58; Add 903 903 88;
  Sub 896 896 903; Mul 906 906 896; Add 904 904 906; Mul 906 888 153; Mul 903 897 45; Add 906 906 903;
  Add 151 151 906; Mul 907 907 151; Add 904 904 907; Mul 907 890 153; Mul 906 897 22; Add 907 907 906;
  Add 899 899 907; Mul 908 908 899; Add 904 904 908; Mul 908 892 153; Mul 907 897 879; Add 908 908 907;
  Add 193 193 908; Mul 909 909 193; Add 904 904 909; Div 904 904 1067; Mul 1214 1214 904; Sub 900 900 1214;
  Mul 894 894 900; Add 891 891 894; Mul 894 912 1059; Div 150 150 905; Mul 1614 1614 904; Sub 150 150 1614;
  Mul 893 893 150; Add 894 894 893; Sub 891 891 894; Mul 894 886 191; Mul 893 882 58; Add 894 894 893;
  Sub 874 874 894; Mul 894 914 874; Div 896 896 905; Mul 1273 1273 904; Sub 896 896 1273; Mul 913 913 896;
  Add 894 894 913; Add 891 891 894; Mul 894 888 191; Mul 913 882 45; Add 894 894 913; Sub 883 883 894;
  Mul 894 916 883; Div 151 151 905; Mul 1260 1260 904; Sub 151 151 1260; Mul 915 915 151; Add 894 894 915;
  Sub 891 891 894; Mul 894 890 191; Mul 915 882 22; Add 894 894 915; Add 885 885 894; Mul 894 918 885;
  Div 899 899 905; Mul 1249 1249 904; Sub 899 899 1249; Mul 917 917 899; Add 894 894 917; Add 891 891 894;
  Div 193 193 905; Mul 1569 1569 904; Sub 193 193 1569; Mul 919 919 193; Mul 1569 892 191; Mul 894 882 879;
  Add 1569 1569 894; Add 1619 1619 1569; Mul 1569 920 1619; Sub 919 919 1569; Sub 891 891 919; Mul 919 912 891;
  Mul 1569 911 150; Add 919 919 1569; Add 1059 1059 919; Mul 919 944 1059; Mul 1569 210 1050; Mul 168 168 122;
  Add 1569 1569 168; Mul 168 777 165; Mul 171 171 114; Add 168 168 171; Add 1569 1569 168; Mul 168 778 158;
  Mul 877 877 1069; Add 168 168 877; Add 1569 1569 168; Mul 168 769 30; Mul 878 878 1023; Add 168 168 878;
  Add 1569 1569 168; Mul 168 761 180; Mul 878 98 1516; Add 168 168 878; Add 1569 1569 168; Mul 168 754 170;
  Mul 855 855 1637; Add 168 168 855; Add 1569 1569 168; Mul 168 210 1569; Mul 855 922 122; Add 168 168 855;
  Sub 1050 1050 168; Mul 168 881 1050; Mul 923 923 185; Add 168 168 923; Mul 923 777 1569; Mul 855 922 114;
  Add 923 923 855; Sub 165 165 923; Mul 923 884 165; Mul 925 925 100; Add 923 923 925].
Definition casadi_f0_979 : list instruction := [
  Add 168 168 923; Mul 923 778 1569; Mul 925 922 1069; Add 923 923 925; Sub 923 923 158; Mul 158 886 923;
  Mul 926 926 58; Add 158 158 926; Add 168 168 158; Mul 158 769 1569; Mul 926 922 1023; Add 158 158 926;
  Sub 30 30 158; Mul 158 888 30; Mul 927 927 45; Add 158 158 927; Add 168 168 158; Mul 158 761 1569;
  Mul 927 922 1516; Add 158 158 927; Sub 158 180 158; Mul 927 890 158; Mul 928 928 22; Add 927 927 928;
  Add 168 168 927; Mul 927 754 1569; Mul 928 922 1637; Add 927 927 928; Sub 170 170 927; Mul 927 892 170;
  Mul 929 929 879; Add 927 927 929; Add 168 168 927; Mul 927 881 168; Mul 929 924 185; Add 927 927 929;
  Sub 1050 1050 927; Mul 927 884 168; Mul 929 924 100; Add 927 927 929; Sub 165 165 927; Mul 927 910 165;
  Mul 931 931 900; Add 927 927 931; Mul 931 912 1050; Mul 930 930 150; Add 931 931 930; Sub 927 927 931;
  Mul 931 886 168; Mul 930 924 58; Add 931 931 930; Sub 923 923 931; Mul 931 914 923; Mul 933 933 896;
  Add 931 931 933; Add 927 927 931; Mul 931 888 168; Mul 933 924 45; Add 931 931 933; Sub 30 30 931;
  Mul 931 916 30; Mul 934 934 151; Add 931 931 934; Sub 927 927 931; Mul 931 890 168; Mul 934 924 22;
  Add 931 931 934; Sub 158 158 931; Mul 931 918 158; Mul 935 935 899; Add 931 931 935; Sub 927 927 931;
  Mul 931 892 168; Mul 935 924 879; Add 931 931 935; Sub 170 170 931; Mul 931 920 170; Mul 936 936 193;
  Add 931 931 936; Sub 927 927 931; Mul 931 912 927; Mul 936 932 150; Add 931 931 936; Add 1050 1050 931;
  Div 931 1050 938; Mul 937 937 1050; Mul 1050 910 927; Mul 936 932 900; Add 1050 1050 936; Sub 165 165 1050;
  Mul 939 939 165; Add 937 937 939; Mul 939 914 927; Mul 1050 932 896; Add 939 939 1050; Sub 923 923 939;
  Mul 940 940 923; Add 937 937 940; Mul 940 916 927; Mul 939 932 151; Add 940 940 939; Add 30 30 940;
  Mul 941 941 30; Add 937 937 941; Mul 941 918 927; Mul 940 932 899; Add 941 941 940; Add 158 158 941;
  Mul 942 942 158; Add 937 937 942; Mul 942 920 927; Mul 941 932 193; Add 942 942 941; Add 170 170 942;
  Mul 943 943 170; Add 937 937 943; Div 937 937 1615; Mul 1446 1446 937; Sub 931 931 1446; Mul 921 921 931;
  Add 919 919 921; Mul 921 910 891; Mul 1446 911 900; Add 921 921 1446; Sub 206 206 921; Mul 921 947 206;
  Div 165 165 938; Mul 1184 1184 937; Sub 165 165 1184; Mul 946 946 165; Add 921 921 946; Add 919 919 921;
  Mul 921 914 891; Mul 946 911 896; Add 921 921 946; Sub 874 874 921; Mul 921 949 874; Div 923 923 938;
  Mul 1160 1160 937; Sub 923 923 1160; Mul 948 948 923; Add 921 921 948; Add 919 919 921; Mul 921 916 891;
  Mul 948 911 151; Add 921 921 948; Add 883 883 921; Mul 921 951 883; Div 30 30 938].
Definition casadi_f0_980 : list instruction := [
  Mul 1328 1328 937; Sub 30 30 1328; Mul 950 950 30; Add 921 921 950; Add 919 919 921; Mul 921 918 891;
  Mul 950 911 899; Add 921 921 950; Sub 921 921 885; Mul 885 953 921; Div 158 158 938; Mul 1155 1155 937;
  Sub 158 158 1155; Mul 952 952 158; Add 885 885 952; Add 919 919 885; Mul 885 920 891; Mul 952 911 193;
  Add 885 885 952; Sub 885 885 1619; Mul 1619 955 885; Div 170 170 938; Mul 1220 1220 937; Sub 170 170 1220;
  Mul 954 954 170; Add 1619 1619 954; Add 919 919 1619; Mul 1619 944 919; Mul 954 945 931; Add 1619 1619 954;
  Sub 1059 1059 1619; Mul 1619 986 1059; Mul 954 210 1070; Mul 175 175 122; Add 954 954 175; Mul 175 777 102;
  Mul 188 188 114; Add 175 175 188; Add 954 954 175; Mul 175 778 86; Mul 94 94 1069; Add 175 175 94;
  Add 954 954 175; Mul 175 769 180; Mul 98 98 1023; Add 175 175 98; Add 954 954 175; Mul 175 761 82;
  Mul 172 172 1516; Add 175 175 172; Sub 954 954 175; Mul 175 754 183; Mul 201 201 1637; Add 175 175 201;
  Sub 954 954 175; Mul 210 210 954; Mul 122 957 122; Add 210 210 122; Sub 1070 1070 210; Mul 210 881 1070;
  Mul 958 958 185; Add 210 210 958; Mul 777 777 954; Mul 114 957 114; Add 777 777 114; Sub 102 102 777;
  Mul 777 884 102; Mul 960 960 100; Add 777 777 960; Add 210 210 777; Mul 778 778 954; Mul 1069 957 1069;
  Add 778 778 1069; Sub 778 778 86; Mul 86 886 778; Mul 961 961 58; Add 86 86 961; Add 210 210 86;
  Mul 769 769 954; Mul 1023 957 1023; Add 769 769 1023; Sub 180 180 769; Mul 769 888 180; Mul 962 962 45;
  Add 769 769 962; Add 210 210 769; Mul 761 761 954; Mul 1516 957 1516; Add 761 761 1516; Add 82 82 761;
  Mul 761 890 82; Mul 963 963 22; Add 761 761 963; Sub 210 210 761; Mul 754 754 954; Mul 1637 957 1637;
  Add 754 754 1637; Add 183 183 754; Mul 754 892 183; Mul 964 964 879; Add 754 754 964; Sub 210 210 754;
  Mul 754 881 210; Mul 964 959 185; Add 754 754 964; Sub 1070 1070 754; Mul 754 884 210; Mul 964 959 100;
  Add 754 754 964; Sub 102 102 754; Mul 754 910 102; Mul 966 966 900; Add 754 754 966; Mul 966 912 1070;
  Mul 965 965 150; Add 966 966 965; Sub 754 754 966; Mul 966 886 210; Mul 965 959 58; Add 966 966 965;
  Sub 778 778 966; Mul 966 914 778; Mul 968 968 896; Add 966 966 968; Add 754 754 966; Mul 966 888 210;
  Mul 968 959 45; Add 966 966 968; Sub 180 180 966; Mul 966 916 180; Mul 969 969 151; Add 966 966 969;
  Sub 754 754 966; Mul 966 890 210; Mul 969 959 22; Add 966 966 969; Add 82 82 966; Mul 966 918 82;
  Mul 970 970 899; Add 966 966 970; Add 754 754 966; Mul 966 892 210; Mul 970 959 879; Add 966 966 970;
  Add 183 183 966; Mul 966 920 183; Mul 971 971 193; Add 966 966 971; Add 754 754 966].
Definition casadi_f0_981 : list instruction := [
  Mul 966 912 754; Mul 971 967 150; Add 966 966 971; Add 1070 1070 966; Mul 966 944 1070; Mul 972 972 931;
  Add 966 966 972; Mul 972 910 754; Mul 971 967 900; Add 972 972 971; Sub 102 102 972; Mul 972 947 102;
  Mul 974 974 165; Add 972 972 974; Add 966 966 972; Mul 972 914 754; Mul 974 967 896; Add 972 972 974;
  Sub 778 778 972; Mul 972 949 778; Mul 975 975 923; Add 972 972 975; Add 966 966 972; Mul 972 916 754;
  Mul 975 967 151; Add 972 972 975; Add 180 180 972; Mul 972 951 180; Mul 976 976 30; Add 972 972 976;
  Add 966 966 972; Mul 972 918 754; Mul 976 967 899; Add 972 972 976; Sub 972 972 82; Mul 82 953 972;
  Mul 977 977 158; Add 82 82 977; Add 966 966 82; Mul 82 920 754; Mul 977 967 193; Add 82 82 977; Sub 82 82 183;
  Mul 183 955 82; Mul 978 978 170; Add 183 183 978; Add 966 966 183; Mul 183 944 966; Mul 978 973 931;
  Add 183 183 978; Sub 1070 1070 183; Div 183 1070 980; Mul 979 979 1070; Mul 1070 947 966; Mul 978 973 165;
  Add 1070 1070 978; Sub 102 102 1070; Mul 981 981 102; Add 979 979 981; Mul 981 949 966; Mul 1070 973 923;
  Add 981 981 1070; Sub 778 778 981; Mul 982 982 778; Add 979 979 982; Mul 982 951 966; Mul 981 973 30;
  Add 982 982 981; Sub 180 180 982; Mul 983 983 180; Add 979 979 983; Mul 983 953 966; Mul 982 973 158;
  Add 983 983 982; Sub 972 972 983; Mul 984 984 972; Add 979 979 984; Mul 984 955 966; Mul 983 973 170;
  Add 984 984 983; Sub 82 82 984; Mul 985 985 82; Add 979 979 985; Div 979 979 1630; Mul 1629 1629 979;
  Sub 183 183 1629; Mul 956 956 183; Add 1619 1619 956; Mul 956 947 919; Mul 1629 945 165; Add 956 956 1629;
  Sub 206 206 956; Mul 956 989 206; Div 102 102 980; Mul 1262 1262 979; Sub 102 102 1262; Mul 988 988 102;
  Add 956 956 988; Add 1619 1619 956; Mul 956 949 919; Mul 988 945 923; Add 956 956 988; Sub 874 874 956;
  Mul 956 991 874; Div 778 778 980; Mul 1306 1306 979; Sub 778 778 1306; Mul 990 990 778; Add 956 956 990;
  Add 1619 1619 956; Mul 956 951 919; Mul 990 945 30; Add 956 956 990; Sub 883 883 956; Mul 956 993 883;
  Div 180 180 980; Mul 1626 1626 979; Sub 180 180 1626; Mul 992 992 180; Add 956 956 992; Add 1619 1619 956;
  Mul 956 953 919; Mul 992 945 158; Add 956 956 992; Sub 921 921 956; Mul 956 995 921; Div 972 972 980;
  Mul 1530 1530 979; Sub 972 972 1530; Mul 994 994 972; Add 956 956 994; Add 1619 1619 956; Mul 956 955 919;
  Mul 994 945 170; Add 956 956 994; Sub 885 885 956; Mul 956 997 885; Div 82 82 980; Mul 1472 1472 979;
  Sub 82 82 1472; Mul 996 996 82; Add 956 956 996; Add 1619 1619 956; Mul 956 986 1619; Mul 996 987 183;
  Add 956 956 996; Sub 1059 1059 956; Div 956 1059 999; Mul 998 998 1059].
Definition casadi_f0_982 : list instruction := [
  Mul 1059 989 1619; Mul 996 987 102; Add 1059 1059 996; Sub 206 206 1059; Mul 1000 1000 206; Add 998 998 1000;
  Mul 1000 991 1619; Mul 1059 987 778; Add 1000 1000 1059; Sub 874 874 1000; Mul 1001 1001 874;
  Add 998 998 1001; Mul 1001 993 1619; Mul 1000 987 180; Add 1001 1001 1000; Sub 883 883 1001;
  Mul 1002 1002 883; Add 998 998 1002; Mul 1002 995 1619; Mul 1001 987 972; Add 1002 1002 1001;
  Sub 921 921 1002; Mul 1003 1003 921; Add 998 998 1003; Mul 1003 997 1619; Mul 1002 987 82; Add 1003 1003 1002;
  Sub 885 885 1003; Mul 1004 1004 885; Add 998 998 1004; Div 998 998 1095; Mul 1596 1596 998; Sub 956 956 1596;
  Mul 956 211 956; Mul 1005 1005 192; Sub 956 956 1005; Div 206 206 999; Mul 1331 1331 998; Sub 206 206 1331;
  Mul 206 779 206; Mul 1007 1007 311; Sub 206 206 1007; Add 956 956 206; Div 874 874 999; Mul 1080 1080 998;
  Sub 874 874 1080; Mul 874 767 874; Mul 1008 1008 85; Add 874 874 1008; Add 956 956 874; Div 883 883 999;
  Mul 1056 1056 998; Sub 883 883 1056; Mul 883 775 883; Mul 1009 1009 694; Sub 883 883 1009; Add 956 956 883;
  Div 921 921 999; Mul 1068 1068 998; Sub 921 921 1068; Mul 921 815 921; Mul 1010 1010 380; Add 921 921 1010;
  Add 956 956 921; Div 885 885 999; Mul 921 1178 998; Sub 885 885 921; Mul 885 833 885; Mul 1011 1011 746;
  Add 885 885 1011; Add 956 956 885; Div 956 956 999; Mul 1033 1033 998; Sub 956 956 1033; Mul 756 756 956;
  Add 873 873 756; Sub 1072 1072 873; Mul 954 1012 954; Mul 183 211 183; Mul 986 986 192; Sub 183 183 986;
  Mul 102 779 102; Mul 989 989 311; Sub 102 102 989; Add 183 183 102; Mul 778 767 778; Mul 991 991 85;
  Add 778 778 991; Add 183 183 778; Mul 180 775 180; Mul 993 993 694; Sub 180 180 993; Add 183 183 180;
  Mul 972 815 972; Mul 995 995 380; Add 972 972 995; Add 183 183 972; Mul 82 833 82; Mul 997 997 746;
  Add 82 82 997; Add 183 183 82; Mul 1619 1006 1619; Mul 987 987 956; Add 1619 1619 987; Sub 183 183 1619;
  Div 183 183 980; Mul 1534 1534 979; Sub 183 183 1534; Mul 957 957 183; Add 954 954 957; Sub 1072 1072 954;
  Mul 1569 1013 1569; Mul 931 211 931; Mul 944 944 192; Sub 931 931 944; Mul 165 779 165; Mul 947 947 311;
  Sub 165 165 947; Add 931 931 165; Mul 923 767 923; Mul 949 949 85; Add 923 923 949; Add 931 931 923;
  Mul 30 775 30; Mul 951 951 694; Sub 30 30 951; Add 931 931 30; Mul 158 815 158; Mul 953 953 380;
  Add 158 158 953; Add 931 931 158; Mul 170 833 170; Mul 955 955 746; Add 170 170 955; Add 931 931 170;
  Mul 919 1006 919; Mul 945 945 956; Add 919 919 945; Sub 931 931 919; Mul 966 1012 966; Mul 973 973 183;
  Add 966 966 973; Sub 931 931 966; Div 931 931 938; Mul 1397 1397 937; Sub 931 931 1397; Mul 922 922 931;
  Add 1569 1569 922; Sub 1072 1072 1569].
Definition casadi_f0_983 : list instruction := [
  Mul 1046 1014 1046; Mul 900 779 900; Mul 910 910 311; Sub 900 900 910; Mul 150 211 150; Mul 912 912 192;
  Sub 150 150 912; Sub 900 900 150; Mul 896 767 896; Mul 914 914 85; Add 896 896 914; Add 900 900 896;
  Mul 151 775 151; Mul 916 916 694; Sub 151 151 916; Sub 900 900 151; Mul 899 815 899; Mul 918 918 380;
  Add 899 899 918; Sub 900 900 899; Mul 193 833 193; Mul 920 920 746; Add 193 193 920; Sub 900 900 193;
  Mul 891 1006 891; Mul 911 911 956; Add 891 891 911; Sub 900 900 891; Mul 754 1012 754; Mul 967 967 183;
  Add 754 754 967; Sub 900 900 754; Mul 927 1013 927; Mul 932 932 931; Add 927 927 932; Sub 900 900 927;
  Div 900 900 905; Mul 1553 1553 904; Sub 900 900 1553; Mul 895 895 900; Add 1046 1046 895; Sub 1072 1072 1046;
  Mul 1015 1015 194; Mul 211 211 185; Mul 881 881 192; Sub 211 211 881; Mul 779 779 100; Mul 884 884 311;
  Sub 779 779 884; Add 211 211 779; Mul 767 767 58; Mul 886 886 85; Add 767 767 886; Add 211 211 767;
  Mul 775 775 45; Mul 888 888 694; Sub 775 775 888; Add 211 211 775; Mul 815 815 22; Mul 890 890 380;
  Add 815 815 890; Add 211 211 815; Mul 833 833 879; Mul 892 892 746; Add 833 833 892; Add 211 211 833;
  Mul 1006 1006 191; Mul 882 882 956; Add 1006 1006 882; Sub 211 211 1006; Mul 1012 1012 210; Mul 959 959 183;
  Add 1012 1012 959; Sub 211 211 1012; Mul 1013 1013 168; Mul 924 924 931; Add 1013 1013 924; Sub 211 211 1013;
  Mul 1014 1014 153; Mul 897 897 900; Add 1014 1014 897; Sub 211 211 1014; Div 211 211 65; Mul 1623 1623 89;
  Sub 211 211 1623; Mul 875 875 211; Add 1015 1015 875; Sub 1072 1072 1015; Div 1072 1072 92; Mul 759 759 6;
  Sub 1072 1072 759; Add 1309 1309 1072; Out 2 66 1309; Add 1201 1201 211; Out 2 67 1201; Sub 900 900 1183;
  Out 2 68 900; Add 1182 1182 931; Out 2 69 1182; Add 1364 1364 183; Out 2 70 1364; Add 1178 1178 956;
  Out 2 71 1178].
Definition casadi_f0 : casadi_function := {| f_locals := casadi_f0_locals; f_code :=
  casadi_f0_1 ++ casadi_f0_2 ++ casadi_f0_3 ++ casadi_f0_4 ++ casadi_f0_5 ++ casadi_f0_6 ++ casadi_f0_7 ++
  casadi_f0_8 ++ casadi_f0_9 ++ casadi_f0_10 ++ casadi_f0_11 ++ casadi_f0_12 ++ casadi_f0_13 ++ casadi_f0_14 ++
  casadi_f0_15 ++ casadi_f0_16 ++ casadi_f0_17 ++ casadi_f0_18 ++ casadi_f0_19 ++ casadi_f0_20 ++
  casadi_f0_21 ++ casadi_f0_22 ++ casadi_f0_23 ++ casadi_f0_24 ++ casadi_f0_25 ++ casadi_f0_26 ++
  casadi_f0_27 ++ casadi_f0_28 ++ casadi_f0_29 ++ casadi_f0_30 ++ casadi_f0_31 ++ casadi_f0_32 ++
  casadi_f0_33 ++ casadi_f0_34 ++ casadi_f0_35 ++ casadi_f0_36 ++ casadi_f0_37 ++ casadi_f0_38 ++
  casadi_f0_39 ++ casadi_f0_40 ++ casadi_f0_41 ++ casadi_f0_42 ++ casadi_f0_43 ++ casadi_f0_44 ++
  casadi_f0_45 ++ casadi_f0_46 ++ casadi_f0_47 ++ casadi_f0_48 ++ casadi_f0_49 ++ casadi_f0_50 ++
  casadi_f0_51 ++ casadi_f0_52 ++ casadi_f0_53 ++ casadi_f0_54 ++ casadi_f0_55 ++ casadi_f0_56 ++
  casadi_f0_57 ++ casadi_f0_58 ++ casadi_f0_59 ++ casadi_f0_60 ++ casadi_f0_61 ++ casadi_f0_62 ++
  casadi_f0_63 ++ casadi_f0_64 ++ casadi_f0_65 ++ casadi_f0_66 ++ casadi_f0_67 ++ casadi_f0_68 ++
  casadi_f0_69 ++ casadi_f0_70 ++ casadi_f0_71 ++ casadi_f0_72 ++ casadi_f0_73 ++ casadi_f0_74 ++
  casadi_f0_75 ++ casadi_f0_76 ++ casadi_f0_77 ++ casadi_f0_78 ++ casadi_f0_79 ++ casadi_f0_80 ++
  casadi_f0_81 ++ casadi_f0_82 ++ casadi_f0_83 ++ casadi_f0_84 ++ casadi_f0_85 ++ casadi_f0_86 ++
  casadi_f0_87 ++ casadi_f0_88 ++ casadi_f0_89 ++ casadi_f0_90 ++ casadi_f0_91 ++ casadi_f0_92 ++
  casadi_f0_93 ++ casadi_f0_94 ++ casadi_f0_95 ++ casadi_f0_96 ++ casadi_f0_97 ++ casadi_f0_98 ++
  casadi_f0_99 ++ casadi_f0_100 ++ casadi_f0_101 ++ casadi_f0_102 ++ casadi_f0_103 ++ casadi_f0_104 ++
  casadi_f0_105 ++ casadi_f0_106 ++ casadi_f0_107 ++ casadi_f0_108 ++ casadi_f0_109 ++ casadi_f0_110 ++
  casadi_f0_111 ++ casadi_f0_112 ++ casadi_f0_113 ++ casadi_f0_114 ++ casadi_f0_115 ++ casadi_f0_116 ++
  casadi_f0_117 ++ casadi_f0_118 ++ casadi_f0_119 ++ casadi_f0_120 ++ casadi_f0_121 ++ casadi_f0_122 ++
  casadi_f0_123 ++ casadi_f0_124 ++ casadi_f0_125 ++ casadi_f0_126 ++ casadi_f0_127 ++ casadi_f0_128 ++
  casadi_f0_129 ++ casadi_f0_130 ++ casadi_f0_131 ++ casadi_f0_132 ++ casadi_f0_133 ++ casadi_f0_134 ++
  casadi_f0_135 ++ casadi_f0_136 ++ casadi_f0_137 ++ casadi_f0_138 ++ casadi_f0_139 ++ casadi_f0_140 ++
  casadi_f0_141 ++ casadi_f0_142 ++ casadi_f0_143 ++ casadi_f0_144 ++ casadi_f0_145 ++ casadi_f0_146 ++
  casadi_f0_147 ++ casadi_f0_148 ++ casadi_f0_149 ++ casadi_f0_150 ++ casadi_f0_151 ++ casadi_f0_152 ++
  casadi_f0_153 ++ casadi_f0_154 ++ casadi_f0_155 ++ casadi_f0_156 ++ casadi_f0_157 ++ casadi_f0_158 ++
  casadi_f0_159 ++ casadi_f0_160 ++ casadi_f0_161 ++ casadi_f0_162 ++ casadi_f0_163 ++ casadi_f0_164 ++
  casadi_f0_165 ++ casadi_f0_166 ++ casadi_f0_167 ++ casadi_f0_168 ++ casadi_f0_169 ++ casadi_f0_170 ++
  casadi_f0_171 ++ casadi_f0_172 ++ casadi_f0_173 ++ casadi_f0_174 ++ casadi_f0_175 ++ casadi_f0_176 ++
  casadi_f0_177 ++ casadi_f0_178 ++ casadi_f0_179 ++ casadi_f0_180 ++ casadi_f0_181 ++ casadi_f0_182 ++
  casadi_f0_183 ++ casadi_f0_184 ++ casadi_f0_185 ++ casadi_f0_186 ++ casadi_f0_187 ++ casadi_f0_188 ++
  casadi_f0_189 ++ casadi_f0_190 ++ casadi_f0_191 ++ casadi_f0_192 ++ casadi_f0_193 ++ casadi_f0_194 ++
  casadi_f0_195 ++ casadi_f0_196 ++ casadi_f0_197 ++ casadi_f0_198 ++ casadi_f0_199 ++ casadi_f0_200 ++
  casadi_f0_201 ++ casadi_f0_202 ++ casadi_f0_203 ++ casadi_f0_204 ++ casadi_f0_205 ++ casadi_f0_206 ++
  casadi_f0_207 ++ casadi_f0_208 ++ casadi_f0_209 ++ casadi_f0_210 ++ casadi_f0_211 ++ casadi_f0_212 ++
  casadi_f0_213 ++ casadi_f0_214 ++ casadi_f0_215 ++ casadi_f0_216 ++ casadi_f0_217 ++ casadi_f0_218 ++
  casadi_f0_219 ++ casadi_f0_220 ++ casadi_f0_221 ++ casadi_f0_222 ++ casadi_f0_223 ++ casadi_f0_224 ++
  casadi_f0_225 ++ casadi_f0_226 ++ casadi_f0_227 ++ casadi_f0_228 ++ casadi_f0_229 ++ casadi_f0_230 ++
  casadi_f0_231 ++ casadi_f0_232 ++ casadi_f0_233 ++ casadi_f0_234 ++ casadi_f0_235 ++ casadi_f0_236 ++
  casadi_f0_237 ++ casadi_f0_238 ++ casadi_f0_239 ++ casadi_f0_240 ++ casadi_f0_241 ++ casadi_f0_242 ++
  casadi_f0_243 ++ casadi_f0_244 ++ casadi_f0_245 ++ casadi_f0_246 ++ casadi_f0_247 ++ casadi_f0_248 ++
  casadi_f0_249 ++ casadi_f0_250 ++ casadi_f0_251 ++ casadi_f0_252 ++ casadi_f0_253 ++ casadi_f0_254 ++
  casadi_f0_255 ++ casadi_f0_256 ++ casadi_f0_257 ++ casadi_f0_258 ++ casadi_f0_259 ++ casadi_f0_260 ++
  casadi_f0_261 ++ casadi_f0_262 ++ casadi_f0_263 ++ casadi_f0_264 ++ casadi_f0_265 ++ casadi_f0_266 ++
  casadi_f0_267 ++ casadi_f0_268 ++ casadi_f0_269 ++ casadi_f0_270 ++ casadi_f0_271 ++ casadi_f0_272 ++
  casadi_f0_273 ++ casadi_f0_274 ++ casadi_f0_275 ++ casadi_f0_276 ++ casadi_f0_277 ++ casadi_f0_278 ++
  casadi_f0_279 ++ casadi_f0_280 ++ casadi_f0_281 ++ casadi_f0_282 ++ casadi_f0_283 ++ casadi_f0_284 ++
  casadi_f0_285 ++ casadi_f0_286 ++ casadi_f0_287 ++ casadi_f0_288 ++ casadi_f0_289 ++ casadi_f0_290 ++
  casadi_f0_291 ++ casadi_f0_292 ++ casadi_f0_293 ++ casadi_f0_294 ++ casadi_f0_295 ++ casadi_f0_296 ++
  casadi_f0_297 ++ casadi_f0_298 ++ casadi_f0_299 ++ casadi_f0_300 ++ casadi_f0_301 ++ casadi_f0_302 ++
  casadi_f0_303 ++ casadi_f0_304 ++ casadi_f0_305 ++ casadi_f0_306 ++ casadi_f0_307 ++ casadi_f0_308 ++
  casadi_f0_309 ++ casadi_f0_310 ++ casadi_f0_311 ++ casadi_f0_312 ++ casadi_f0_313 ++ casadi_f0_314 ++
  casadi_f0_315 ++ casadi_f0_316 ++ casadi_f0_317 ++ casadi_f0_318 ++ casadi_f0_319 ++ casadi_f0_320 ++
  casadi_f0_321 ++ casadi_f0_322 ++ casadi_f0_323 ++ casadi_f0_324 ++ casadi_f0_325 ++ casadi_f0_326 ++
  casadi_f0_327 ++ casadi_f0_328 ++ casadi_f0_329 ++ casadi_f0_330 ++ casadi_f0_331 ++ casadi_f0_332 ++
  casadi_f0_333 ++ casadi_f0_334 ++ casadi_f0_335 ++ casadi_f0_336 ++ casadi_f0_337 ++ casadi_f0_338 ++
  casadi_f0_339 ++ casadi_f0_340 ++ casadi_f0_341 ++ casadi_f0_342 ++ casadi_f0_343 ++ casadi_f0_344 ++
  casadi_f0_345 ++ casadi_f0_346 ++ casadi_f0_347 ++ casadi_f0_348 ++ casadi_f0_349 ++ casadi_f0_350 ++
  casadi_f0_351 ++ casadi_f0_352 ++ casadi_f0_353 ++ casadi_f0_354 ++ casadi_f0_355 ++ casadi_f0_356 ++
  casadi_f0_357 ++ casadi_f0_358 ++ casadi_f0_359 ++ casadi_f0_360 ++ casadi_f0_361 ++ casadi_f0_362 ++
  casadi_f0_363 ++ casadi_f0_364 ++ casadi_f0_365 ++ casadi_f0_366 ++ casadi_f0_367 ++ casadi_f0_368 ++
  casadi_f0_369 ++ casadi_f0_370 ++ casadi_f0_371 ++ casadi_f0_372 ++ casadi_f0_373 ++ casadi_f0_374 ++
  casadi_f0_375 ++ casadi_f0_376 ++ casadi_f0_377 ++ casadi_f0_378 ++ casadi_f0_379 ++ casadi_f0_380 ++
  casadi_f0_381 ++ casadi_f0_382 ++ casadi_f0_383 ++ casadi_f0_384 ++ casadi_f0_385 ++ casadi_f0_386 ++
  casadi_f0_387 ++ casadi_f0_388 ++ casadi_f0_389 ++ casadi_f0_390 ++ casadi_f0_391 ++ casadi_f0_392 ++
  casadi_f0_393 ++ casadi_f0_394 ++ casadi_f0_395 ++ casadi_f0_396 ++ casadi_f0_397 ++ casadi_f0_398 ++
  casadi_f0_399 ++ casadi_f0_400 ++ casadi_f0_401 ++ casadi_f0_402 ++ casadi_f0_403 ++ casadi_f0_404 ++
  casadi_f0_405 ++ casadi_f0_406 ++ casadi_f0_407 ++ casadi_f0_408 ++ casadi_f0_409 ++ casadi_f0_410 ++
  casadi_f0_411 ++ casadi_f0_412 ++ casadi_f0_413 ++ casadi_f0_414 ++ casadi_f0_415 ++ casadi_f0_416 ++
  casadi_f0_417 ++ casadi_f0_418 ++ casadi_f0_419 ++ casadi_f0_420 ++ casadi_f0_421 ++ casadi_f0_422 ++
  casadi_f0_423 ++ casadi_f0_424 ++ casadi_f0_425 ++ casadi_f0_426 ++ casadi_f0_427 ++ casadi_f0_428 ++
  casadi_f0_429 ++ casadi_f0_430 ++ casadi_f0_431 ++ casadi_f0_432 ++ casadi_f0_433 ++ casadi_f0_434 ++
  casadi_f0_435 ++ casadi_f0_436 ++ casadi_f0_437 ++ casadi_f0_438 ++ casadi_f0_439 ++ casadi_f0_440 ++
  casadi_f0_441 ++ casadi_f0_442 ++ casadi_f0_443 ++ casadi_f0_444 ++ casadi_f0_445 ++ casadi_f0_446 ++
  casadi_f0_447 ++ casadi_f0_448 ++ casadi_f0_449 ++ casadi_f0_450 ++ casadi_f0_451 ++ casadi_f0_452 ++
  casadi_f0_453 ++ casadi_f0_454 ++ casadi_f0_455 ++ casadi_f0_456 ++ casadi_f0_457 ++ casadi_f0_458 ++
  casadi_f0_459 ++ casadi_f0_460 ++ casadi_f0_461 ++ casadi_f0_462 ++ casadi_f0_463 ++ casadi_f0_464 ++
  casadi_f0_465 ++ casadi_f0_466 ++ casadi_f0_467 ++ casadi_f0_468 ++ casadi_f0_469 ++ casadi_f0_470 ++
  casadi_f0_471 ++ casadi_f0_472 ++ casadi_f0_473 ++ casadi_f0_474 ++ casadi_f0_475 ++ casadi_f0_476 ++
  casadi_f0_477 ++ casadi_f0_478 ++ casadi_f0_479 ++ casadi_f0_480 ++ casadi_f0_481 ++ casadi_f0_482 ++
  casadi_f0_483 ++ casadi_f0_484 ++ casadi_f0_485 ++ casadi_f0_486 ++ casadi_f0_487 ++ casadi_f0_488 ++
  casadi_f0_489 ++ casadi_f0_490 ++ casadi_f0_491 ++ casadi_f0_492 ++ casadi_f0_493 ++ casadi_f0_494 ++
  casadi_f0_495 ++ casadi_f0_496 ++ casadi_f0_497 ++ casadi_f0_498 ++ casadi_f0_499 ++ casadi_f0_500 ++
  casadi_f0_501 ++ casadi_f0_502 ++ casadi_f0_503 ++ casadi_f0_504 ++ casadi_f0_505 ++ casadi_f0_506 ++
  casadi_f0_507 ++ casadi_f0_508 ++ casadi_f0_509 ++ casadi_f0_510 ++ casadi_f0_511 ++ casadi_f0_512 ++
  casadi_f0_513 ++ casadi_f0_514 ++ casadi_f0_515 ++ casadi_f0_516 ++ casadi_f0_517 ++ casadi_f0_518 ++
  casadi_f0_519 ++ casadi_f0_520 ++ casadi_f0_521 ++ casadi_f0_522 ++ casadi_f0_523 ++ casadi_f0_524 ++
  casadi_f0_525 ++ casadi_f0_526 ++ casadi_f0_527 ++ casadi_f0_528 ++ casadi_f0_529 ++ casadi_f0_530 ++
  casadi_f0_531 ++ casadi_f0_532 ++ casadi_f0_533 ++ casadi_f0_534 ++ casadi_f0_535 ++ casadi_f0_536 ++
  casadi_f0_537 ++ casadi_f0_538 ++ casadi_f0_539 ++ casadi_f0_540 ++ casadi_f0_541 ++ casadi_f0_542 ++
  casadi_f0_543 ++ casadi_f0_544 ++ casadi_f0_545 ++ casadi_f0_546 ++ casadi_f0_547 ++ casadi_f0_548 ++
  casadi_f0_549 ++ casadi_f0_550 ++ casadi_f0_551 ++ casadi_f0_552 ++ casadi_f0_553 ++ casadi_f0_554 ++
  casadi_f0_555 ++ casadi_f0_556 ++ casadi_f0_557 ++ casadi_f0_558 ++ casadi_f0_559 ++ casadi_f0_560 ++
  casadi_f0_561 ++ casadi_f0_562 ++ casadi_f0_563 ++ casadi_f0_564 ++ casadi_f0_565 ++ casadi_f0_566 ++
  casadi_f0_567 ++ casadi_f0_568 ++ casadi_f0_569 ++ casadi_f0_570 ++ casadi_f0_571 ++ casadi_f0_572 ++
  casadi_f0_573 ++ casadi_f0_574 ++ casadi_f0_575 ++ casadi_f0_576 ++ casadi_f0_577 ++ casadi_f0_578 ++
  casadi_f0_579 ++ casadi_f0_580 ++ casadi_f0_581 ++ casadi_f0_582 ++ casadi_f0_583 ++ casadi_f0_584 ++
  casadi_f0_585 ++ casadi_f0_586 ++ casadi_f0_587 ++ casadi_f0_588 ++ casadi_f0_589 ++ casadi_f0_590 ++
  casadi_f0_591 ++ casadi_f0_592 ++ casadi_f0_593 ++ casadi_f0_594 ++ casadi_f0_595 ++ casadi_f0_596 ++
  casadi_f0_597 ++ casadi_f0_598 ++ casadi_f0_599 ++ casadi_f0_600 ++ casadi_f0_601 ++ casadi_f0_602 ++
  casadi_f0_603 ++ casadi_f0_604 ++ casadi_f0_605 ++ casadi_f0_606 ++ casadi_f0_607 ++ casadi_f0_608 ++
  casadi_f0_609 ++ casadi_f0_610 ++ casadi_f0_611 ++ casadi_f0_612 ++ casadi_f0_613 ++ casadi_f0_614 ++
  casadi_f0_615 ++ casadi_f0_616 ++ casadi_f0_617 ++ casadi_f0_618 ++ casadi_f0_619 ++ casadi_f0_620 ++
  casadi_f0_621 ++ casadi_f0_622 ++ casadi_f0_623 ++ casadi_f0_624 ++ casadi_f0_625 ++ casadi_f0_626 ++
  casadi_f0_627 ++ casadi_f0_628 ++ casadi_f0_629 ++ casadi_f0_630 ++ casadi_f0_631 ++ casadi_f0_632 ++
  casadi_f0_633 ++ casadi_f0_634 ++ casadi_f0_635 ++ casadi_f0_636 ++ casadi_f0_637 ++ casadi_f0_638 ++
  casadi_f0_639 ++ casadi_f0_640 ++ casadi_f0_641 ++ casadi_f0_642 ++ casadi_f0_643 ++ casadi_f0_644 ++
  casadi_f0_645 ++ casadi_f0_646 ++ casadi_f0_647 ++ casadi_f0_648 ++ casadi_f0_649 ++ casadi_f0_650 ++
  casadi_f0_651 ++ casadi_f0_652 ++ casadi_f0_653 ++ casadi_f0_654 ++ casadi_f0_655 ++ casadi_f0_656 ++
  casadi_f0_657 ++ casadi_f0_658 ++ casadi_f0_659 ++ casadi_f0_660 ++ casadi_f0_661 ++ casadi_f0_662 ++
  casadi_f0_663 ++ casadi_f0_664 ++ casadi_f0_665 ++ casadi_f0_666 ++ casadi_f0_667 ++ casadi_f0_668 ++
  casadi_f0_669 ++ casadi_f0_670 ++ casadi_f0_671 ++ casadi_f0_672 ++ casadi_f0_673 ++ casadi_f0_674 ++
  casadi_f0_675 ++ casadi_f0_676 ++ casadi_f0_677 ++ casadi_f0_678 ++ casadi_f0_679 ++ casadi_f0_680 ++
  casadi_f0_681 ++ casadi_f0_682 ++ casadi_f0_683 ++ casadi_f0_684 ++ casadi_f0_685 ++ casadi_f0_686 ++
  casadi_f0_687 ++ casadi_f0_688 ++ casadi_f0_689 ++ casadi_f0_690 ++ casadi_f0_691 ++ casadi_f0_692 ++
  casadi_f0_693 ++ casadi_f0_694 ++ casadi_f0_695 ++ casadi_f0_696 ++ casadi_f0_697 ++ casadi_f0_698 ++
  casadi_f0_699 ++ casadi_f0_700 ++ casadi_f0_701 ++ casadi_f0_702 ++ casadi_f0_703 ++ casadi_f0_704 ++
  casadi_f0_705 ++ casadi_f0_706 ++ casadi_f0_707 ++ casadi_f0_708 ++ casadi_f0_709 ++ casadi_f0_710 ++
  casadi_f0_711 ++ casadi_f0_712 ++ casadi_f0_713 ++ casadi_f0_714 ++ casadi_f0_715 ++ casadi_f0_716 ++
  casadi_f0_717 ++ casadi_f0_718 ++ casadi_f0_719 ++ casadi_f0_720 ++ casadi_f0_721 ++ casadi_f0_722 ++
  casadi_f0_723 ++ casadi_f0_724 ++ casadi_f0_725 ++ casadi_f0_726 ++ casadi_f0_727 ++ casadi_f0_728 ++
  casadi_f0_729 ++ casadi_f0_730 ++ casadi_f0_731 ++ casadi_f0_732 ++ casadi_f0_733 ++ casadi_f0_734 ++
  casadi_f0_735 ++ casadi_f0_736 ++ casadi_f0_737 ++ casadi_f0_738 ++ casadi_f0_739 ++ casadi_f0_740 ++
  casadi_f0_741 ++ casadi_f0_742 ++ casadi_f0_743 ++ casadi_f0_744 ++ casadi_f0_745 ++ casadi_f0_746 ++
  casadi_f0_747 ++ casadi_f0_748 ++ casadi_f0_749 ++ casadi_f0_750 ++ casadi_f0_751 ++ casadi_f0_752 ++
  casadi_f0_753 ++ casadi_f0_754 ++ casadi_f0_755 ++ casadi_f0_756 ++ casadi_f0_757 ++ casadi_f0_758 ++
  casadi_f0_759 ++ casadi_f0_760 ++ casadi_f0_761 ++ casadi_f0_762 ++ casadi_f0_763 ++ casadi_f0_764 ++
  casadi_f0_765 ++ casadi_f0_766 ++ casadi_f0_767 ++ casadi_f0_768 ++ casadi_f0_769 ++ casadi_f0_770 ++
  casadi_f0_771 ++ casadi_f0_772 ++ casadi_f0_773 ++ casadi_f0_774 ++ casadi_f0_775 ++ casadi_f0_776 ++
  casadi_f0_777 ++ casadi_f0_778 ++ casadi_f0_779 ++ casadi_f0_780 ++ casadi_f0_781 ++ casadi_f0_782 ++
  casadi_f0_783 ++ casadi_f0_784 ++ casadi_f0_785 ++ casadi_f0_786 ++ casadi_f0_787 ++ casadi_f0_788 ++
  casadi_f0_789 ++ casadi_f0_790 ++ casadi_f0_791 ++ casadi_f0_792 ++ casadi_f0_793 ++ casadi_f0_794 ++
  casadi_f0_795 ++ casadi_f0_796 ++ casadi_f0_797 ++ casadi_f0_798 ++ casadi_f0_799 ++ casadi_f0_800 ++
  casadi_f0_801 ++ casadi_f0_802 ++ casadi_f0_803 ++ casadi_f0_804 ++ casadi_f0_805 ++ casadi_f0_806 ++
  casadi_f0_807 ++ casadi_f0_808 ++ casadi_f0_809 ++ casadi_f0_810 ++ casadi_f0_811 ++ casadi_f0_812 ++
  casadi_f0_813 ++ casadi_f0_814 ++ casadi_f0_815 ++ casadi_f0_816 ++ casadi_f0_817 ++ casadi_f0_818 ++
  casadi_f0_819 ++ casadi_f0_820 ++ casadi_f0_821 ++ casadi_f0_822 ++ casadi_f0_823 ++ casadi_f0_824 ++
  casadi_f0_825 ++ casadi_f0_826 ++ casadi_f0_827 ++ casadi_f0_828 ++ casadi_f0_829 ++ casadi_f0_830 ++
  casadi_f0_831 ++ casadi_f0_832 ++ casadi_f0_833 ++ casadi_f0_834 ++ casadi_f0_835 ++ casadi_f0_836 ++
  casadi_f0_837 ++ casadi_f0_838 ++ casadi_f0_839 ++ casadi_f0_840 ++ casadi_f0_841 ++ casadi_f0_842 ++
  casadi_f0_843 ++ casadi_f0_844 ++ casadi_f0_845 ++ casadi_f0_846 ++ casadi_f0_847 ++ casadi_f0_848 ++
  casadi_f0_849 ++ casadi_f0_850 ++ casadi_f0_851 ++ casadi_f0_852 ++ casadi_f0_853 ++ casadi_f0_854 ++
  casadi_f0_855 ++ casadi_f0_856 ++ casadi_f0_857 ++ casadi_f0_858 ++ casadi_f0_859 ++ casadi_f0_860 ++
  casadi_f0_861 ++ casadi_f0_862 ++ casadi_f0_863 ++ casadi_f0_864 ++ casadi_f0_865 ++ casadi_f0_866 ++
  casadi_f0_867 ++ casadi_f0_868 ++ casadi_f0_869 ++ casadi_f0_870 ++ casadi_f0_871 ++ casadi_f0_872 ++
  casadi_f0_873 ++ casadi_f0_874 ++ casadi_f0_875 ++ casadi_f0_876 ++ casadi_f0_877 ++ casadi_f0_878 ++
  casadi_f0_879 ++ casadi_f0_880 ++ casadi_f0_881 ++ casadi_f0_882 ++ casadi_f0_883 ++ casadi_f0_884 ++
  casadi_f0_885 ++ casadi_f0_886 ++ casadi_f0_887 ++ casadi_f0_888 ++ casadi_f0_889 ++ casadi_f0_890 ++
  casadi_f0_891 ++ casadi_f0_892 ++ casadi_f0_893 ++ casadi_f0_894 ++ casadi_f0_895 ++ casadi_f0_896 ++
  casadi_f0_897 ++ casadi_f0_898 ++ casadi_f0_899 ++ casadi_f0_900 ++ casadi_f0_901 ++ casadi_f0_902 ++
  casadi_f0_903 ++ casadi_f0_904 ++ casadi_f0_905 ++ casadi_f0_906 ++ casadi_f0_907 ++ casadi_f0_908 ++
  casadi_f0_909 ++ casadi_f0_910 ++ casadi_f0_911 ++ casadi_f0_912 ++ casadi_f0_913 ++ casadi_f0_914 ++
  casadi_f0_915 ++ casadi_f0_916 ++ casadi_f0_917 ++ casadi_f0_918 ++ casadi_f0_919 ++ casadi_f0_920 ++
  casadi_f0_921 ++ casadi_f0_922 ++ casadi_f0_923 ++ casadi_f0_924 ++ casadi_f0_925 ++ casadi_f0_926 ++
  casadi_f0_927 ++ casadi_f0_928 ++ casadi_f0_929 ++ casadi_f0_930 ++ casadi_f0_931 ++ casadi_f0_932 ++
  casadi_f0_933 ++ casadi_f0_934 ++ casadi_f0_935 ++ casadi_f0_936 ++ casadi_f0_937 ++ casadi_f0_938 ++
  casadi_f0_939 ++ casadi_f0_940 ++ casadi_f0_941 ++ casadi_f0_942 ++ casadi_f0_943 ++ casadi_f0_944 ++
  casadi_f0_945 ++ casadi_f0_946 ++ casadi_f0_947 ++ casadi_f0_948 ++ casadi_f0_949 ++ casadi_f0_950 ++
  casadi_f0_951 ++ casadi_f0_952 ++ casadi_f0_953 ++ casadi_f0_954 ++ casadi_f0_955 ++ casadi_f0_956 ++
  casadi_f0_957 ++ casadi_f0_958 ++ casadi_f0_959 ++ casadi_f0_960 ++ casadi_f0_961 ++ casadi_f0_962 ++
  casadi_f0_963 ++ casadi_f0_964 ++ casadi_f0_965 ++ casadi_f0_966 ++ casadi_f0_967 ++ casadi_f0_968 ++
  casadi_f0_969 ++ casadi_f0_970 ++ casadi_f0_971 ++ casadi_f0_972 ++ casadi_f0_973 ++ casadi_f0_974 ++
  casadi_f0_975 ++ casadi_f0_976 ++ casadi_f0_977 ++ casadi_f0_978 ++ casadi_f0_979 ++ casadi_f0_980 ++
  casadi_f0_981 ++ casadi_f0_982 ++ casadi_f0_983 |}.
Definition willow_mpc_expl_vde_forw : casadi_function * casadi_interface := (casadi_f0, {|
  f_name_in := ["i0"; "i1"; "i2"; "i3"; "i4"]; f_name_out := ["o0"; "o1"; "o2"]; f_sparsity_in := [casadi_s0; casadi_s1; casadi_s2; casadi_s3; casadi_s4]; f_sparsity_out := [casadi_s0; casadi_s1; casadi_s2];
  f_n_in := 5; f_n_out := 3; f_work := (5, 3, 0, 0)%nat |}).
