(* ===== verification/MpcCost.v ===== *)
(** * The cost of the MPC

    The six cost functions of the solver (src/generated/c_generated_code/
    willow_mpc_cost/) and that they belong together: the Jacobian that the solver
    is given is the derivative of the cost, and the second derivatives are those
    of the Jacobian. *)

From Stdlib Require Import SpecFloat Reals Lra.
From stdpp Require Import nmap strings.
From S2P Require Import Prelude Arith Casadi Polynomials Symbolic.

(** ** The generated functions *)

(** *** The cost of a step of the MPC

    willow_mpc_cost_y_fun.c, generated by CasADi:
    what is weighed at a step: the position of the flange, the velocities and the torques. *)

Module MpcCostY.
#[local] Open Scope string_scope.
#[local] Open Scope list_scope.

Definition casadi_s0 : list Z := [12; 1; 0; 12; 0; 1; 2; 3; 4; 5; 6; 7; 8; 9; 10; 11].
Definition casadi_s1 : list Z := [6; 1; 0; 6; 0; 1; 2; 3; 4; 5].
Definition casadi_s2 : list Z := [0; 0; 0].
Definition casadi_s3 : list Z := [15; 1; 0; 15; 0; 1; 2; 3; 4; 5; 6; 7; 8; 9; 10; 11; 12; 13; 14].

Definition casadi_f0_locals : N := 24.
Definition casadi_f0_1 : list instruction := [
  Lit 0 (-28499999999999998) 17; Arg 1 0 0; Cos 2 1; Arg 3 0 1; Cos 4 3; Mul 5 2 4; Mul 6 0 5;
  Lit 7 (-26250000000000002) 19; Sin 1 1; Mul 8 7 1; Sub 6 6 8; Lit 8 24818000000000001 17; Arg 9 0 2; Cos 10 9;
  Mul 11 5 10; Sin 3 3; Mul 12 2 3; Sin 9 9; Mul 13 12 9; Add 11 11 13; Mul 13 8 11; Lit 14 528 4; Mul 12 12 10;
  Mul 5 5 9; Sub 12 12 5; Mul 5 14 12; Add 13 13 5; Add 6 6 13; Lit 13 62758999999999995 18; Arg 5 0 3;
  Cos 15 5; Mul 16 11 15; Sin 5 5; Mul 17 12 5; Sub 16 16 17; Mul 17 13 16; Lit 18 41000000000000002 18;
  Mul 11 11 5; Mul 12 12 15; Add 11 11 12; Mul 12 18 11; Lit 19 26250000000000002 19; Mul 20 19 1; Sub 12 12 20;
  Add 17 17 12; Add 6 6 17; Lit 17 18848000000000001 17; Arg 12 0 4; Cos 20 12; Mul 21 16 20; Sin 12 12;
  Mul 22 1 12; Add 21 21 22; Mul 21 17 21; Lit 22 (-78693) 9; Mul 16 16 12; Mul 23 1 20; Sub 16 16 23;
  Mul 16 22 16; Lit 23 (-34077999999999997) 18; Mul 11 23 11; Add 16 16 11; Add 21 21 16; Add 6 6 21; Out 0 0 6;
  Mul 6 1 4; Mul 21 0 6; Mul 7 7 2; Add 21 21 7; Mul 7 6 10; Mul 1 1 3; Mul 16 1 9; Add 7 7 16; Mul 16 8 7;
  Mul 1 1 10; Mul 6 6 9; Sub 1 1 6; Mul 6 14 1; Add 16 16 6; Add 21 21 16; Mul 16 7 15; Mul 6 1 5; Sub 16 16 6;
  Mul 6 13 16; Mul 19 19 2; Mul 7 7 5; Mul 1 1 15; Add 7 7 1; Mul 1 18 7; Add 19 19 1; Add 6 6 19; Add 21 21 6;
  Mul 6 16 20; Mul 19 2 12; Sub 6 6 19; Mul 6 17 6; Mul 16 16 12; Mul 2 2 20; Add 16 16 2; Mul 16 22 16;
  Mul 7 23 7; Add 16 16 7; Add 6 6 16; Add 21 21 6; Out 0 1 21; Lit 21 14324999999999999 17; Mul 0 0 3;
  Sub 21 21 0; Mul 0 4 9; Mul 6 3 10; Sub 0 0 6; Mul 8 8 0; Mul 3 3 9; Mul 4 4 10; Add 3 3 4; Mul 14 14 3;
  Add 8 8 14; Add 21 21 8; Mul 8 0 15; Mul 14 3 5; Sub 8 8 14; Mul 13 13 8; Mul 0 0 5; Mul 3 3 15; Add 0 0 3;
  Mul 18 18 0; Add 13 13 18; Add 21 21 13; Mul 20 8 20; Mul 17 17 20; Mul 8 8 12; Mul 22 22 8; Mul 23 23 0;
  Add 22 22 23; Add 17 17 22; Add 21 21 17; Out 0 2 21; Arg 21 0 6; Out 0 3 21; Arg 21 0 7; Out 0 4 21;
  Arg 21 0 8; Out 0 5 21; Arg 21 0 9; Out 0 6 21; Arg 21 0 10; Out 0 7 21; Arg 21 0 11; Out 0 8 21].
Definition casadi_f0_2 : list instruction := [
  Arg 21 1 0; Out 0 9 21; Arg 21 1 1; Out 0 10 21; Arg 21 1 2; Out 0 11 21; Arg 21 1 3; Out 0 12 21; Arg 21 1 4;
  Out 0 13 21; Arg 21 1 5; Out 0 14 21].
Definition casadi_f0 : casadi_function := {| f_locals := casadi_f0_locals; f_code :=
  casadi_f0_1 ++ casadi_f0_2 |}.
Definition willow_mpc_cost_y_fun : casadi_function * casadi_interface := (casadi_f0, {|
  f_name_in := ["i0"; "i1"; "i2"; "i3"; "i4"]; f_name_out := ["o0"]; f_sparsity_in := [casadi_s0; casadi_s1; casadi_s2; casadi_s2; casadi_s2]; f_sparsity_out := [casadi_s3];
  f_n_in := 5; f_n_out := 1; f_work := (5, 1, 0, 0)%nat |}).
End MpcCostY.
Export MpcCostY.

(** *** The cost of a step of the MPC and its Jacobian

    willow_mpc_cost_y_fun_jac_ut_xt.c, generated by CasADi:
    what is weighed at a step, and its derivatives by torques and state. *)

Module MpcCostYJac.
#[local] Open Scope string_scope.
#[local] Open Scope list_scope.

Definition casadi_s0 : list Z := [12; 1; 0; 12; 0; 1; 2; 3; 4; 5; 6; 7; 8; 9; 10; 11].
Definition casadi_s1 : list Z := [6; 1; 0; 6; 0; 1; 2; 3; 4; 5].
Definition casadi_s2 : list Z := [0; 0; 0].
Definition casadi_s3 : list Z := [15; 1; 0; 15; 0; 1; 2; 3; 4; 5; 6; 7; 8; 9; 10; 11; 12; 13; 14].
Definition casadi_s4 : list Z :=
  [18; 15; 0; 5; 10; 14; 15; 16; 17; 18; 19; 20; 21; 22; 23; 24; 25; 26; 6; 7; 8; 9; 10; 6; 7; 8; 9; 10; 7; 8; 9; 10; 12; 13; 14; 15; 16; 17; 0; 1; 2; 3; 4; 5].
Definition casadi_s5 : list Z := [15; 0; 0].

Definition casadi_f0_locals : N := 54.
Definition casadi_f0_1 : list instruction := [
  Lit 0 (-28499999999999998) 17; Arg 1 0 0; Cos 2 1; Arg 3 0 1; Cos 4 3; Mul 5 2 4; Mul 6 0 5;
  Lit 7 (-26250000000000002) 19; Sin 1 1; Mul 8 7 1; Sub 6 6 8; Lit 9 24818000000000001 17; Arg 10 0 2;
  Cos 11 10; Mul 12 5 11; Sin 3 3; Mul 13 2 3; Sin 10 10; Mul 14 13 10; Add 15 12 14; Mul 16 9 15; Lit 17 528 4;
  Mul 18 13 11; Mul 19 5 10; Sub 18 18 19; Mul 19 17 18; Add 16 16 19; Add 6 6 16; Lit 16 62758999999999995 18;
  Arg 19 0 3; Cos 20 19; Mul 21 15 20; Sin 19 19; Mul 22 18 19; Sub 21 21 22; Mul 22 16 21;
  Lit 23 41000000000000002 18; Mul 15 15 19; Mul 24 18 20; Add 15 15 24; Mul 24 23 15;
  Lit 25 26250000000000002 19; Mul 26 25 1; Sub 24 24 26; Add 22 22 24; Add 6 6 22; Lit 22 18848000000000001 17;
  Arg 24 0 4; Cos 27 24; Mul 28 21 27; Sin 24 24; Mul 29 1 24; Add 28 28 29; Mul 29 22 28; Lit 30 (-78693) 9;
  Mul 31 21 24; Mul 32 1 27; Sub 33 31 32; Mul 33 30 33; Lit 34 (-34077999999999997) 18; Mul 35 34 15;
  Add 33 33 35; Add 29 29 33; Add 6 6 29; Out 0 0 6; Mul 6 1 4; Mul 29 0 6; Mul 7 7 2; Add 29 29 7; Mul 33 6 11;
  Mul 35 1 3; Mul 36 35 10; Add 37 33 36; Mul 38 9 37; Mul 39 35 11; Mul 40 6 10; Sub 39 39 40; Mul 40 17 39;
  Add 38 38 40; Add 29 29 38; Mul 38 37 20; Mul 40 39 19; Sub 38 38 40; Mul 40 16 38; Mul 25 25 2; Mul 37 37 19;
  Mul 41 39 20; Add 37 37 41; Mul 41 23 37; Add 41 25 41; Add 40 40 41; Add 29 29 40; Mul 40 38 27; Mul 41 2 24;
  Sub 40 40 41; Mul 41 22 40; Mul 42 38 24; Mul 43 2 27; Add 42 42 43; Mul 43 30 42; Mul 44 34 37; Add 43 43 44;
  Add 41 41 43; Add 29 29 41; Out 0 1 29; Lit 29 14324999999999999 17; Mul 41 0 3; Sub 29 29 41; Mul 41 4 10;
  Mul 43 3 11; Sub 44 41 43; Mul 45 9 44; Mul 46 3 10; Mul 47 4 11; Add 48 46 47; Mul 49 17 48; Add 45 45 49;
  Add 29 29 45; Mul 45 44 20; Mul 49 48 19; Sub 45 45 49; Mul 49 16 45; Mul 44 44 19; Mul 48 48 20;
  Add 44 44 48; Mul 48 23 44; Add 49 49 48; Add 29 29 49; Mul 49 45 27; Mul 48 22 49; Mul 50 45 24;
  Mul 51 30 50; Mul 52 34 44; Add 51 51 52; Add 48 48 51; Add 29 29 48; Out 0 2 29; Arg 29 0 6; Out 0 3 29;
  Arg 29 0 7; Out 0 4 29; Arg 29 0 8; Out 0 5 29; Arg 29 0 9; Out 0 6 29; Arg 29 0 10; Out 0 7 29; Arg 29 0 11;
  Out 0 8 29].
Definition casadi_f0_2 : list instruction := [
  Arg 29 1 0; Out 0 9 29; Arg 29 1 1; Out 0 10 29; Arg 29 1 2; Out 0 11 29; Arg 29 1 3; Out 0 12 29; Arg 29 1 4;
  Out 0 13 29; Arg 29 1 5; Out 0 14 29; Mul 29 4 1; Mul 48 10 29; Mul 51 3 1; Mul 52 11 51; Sub 48 48 52;
  Mul 52 17 48; Mul 53 11 29; Mul 51 10 51; Add 53 53 51; Mul 51 9 53; Sub 52 52 51; Mul 29 0 29; Add 29 29 7;
  Sub 52 52 29; Mul 29 20 48; Mul 7 19 53; Sub 29 29 7; Mul 7 23 29; Sub 7 7 25; Mul 53 20 53; Mul 48 19 48;
  Add 53 53 48; Mul 48 16 53; Sub 7 7 48; Add 52 52 7; Mul 7 24 2; Mul 48 27 53; Sub 7 7 48; Mul 7 22 7;
  Mul 29 34 29; Mul 53 24 53; Mul 48 27 2; Add 53 53 48; Mul 53 30 53; Sub 29 29 53; Add 7 7 29; Add 52 52 7;
  Out 1 0 52; Mul 52 10 5; Mul 7 11 13; Sub 52 52 7; Mul 7 9 52; Mul 5 11 5; Mul 29 10 13; Add 5 5 29;
  Mul 29 17 5; Add 7 7 29; Mul 13 0 13; Sub 7 7 13; Mul 13 20 52; Mul 29 19 5; Sub 13 13 29; Mul 29 16 13;
  Mul 52 19 52; Mul 5 20 5; Add 52 52 5; Mul 5 23 52; Add 29 29 5; Add 7 7 29; Mul 29 27 13; Mul 29 22 29;
  Mul 13 24 13; Mul 13 30 13; Mul 52 34 52; Add 13 13 52; Add 29 29 13; Add 7 7 29; Out 1 1 7; Mul 7 9 18;
  Add 14 14 12; Mul 12 17 14; Sub 7 7 12; Mul 12 20 18; Mul 29 19 14; Add 12 12 29; Mul 29 16 12; Mul 18 19 18;
  Mul 14 20 14; Sub 18 18 14; Mul 14 23 18; Add 29 29 14; Add 7 7 29; Mul 29 27 12; Mul 29 22 29; Mul 12 24 12;
  Mul 12 30 12; Mul 18 34 18; Add 12 12 18; Add 29 29 12; Add 7 7 29; Out 1 2 7; Mul 7 23 21; Mul 29 16 15;
  Sub 7 7 29; Mul 21 34 21; Mul 29 24 15; Mul 29 30 29; Sub 21 21 29; Mul 15 27 15; Mul 15 22 15; Sub 21 21 15;
  Add 7 7 21; Out 1 3 7; Sub 32 32 31; Mul 32 22 32; Mul 28 30 28; Add 32 32 28; Out 1 4 32; Mul 32 4 2;
  Mul 28 0 32; Sub 28 28 8; Mul 8 11 32; Mul 2 3 2; Mul 31 10 2; Add 8 8 31; Mul 31 9 8; Mul 2 11 2;
  Mul 32 10 32; Sub 2 2 32; Mul 32 17 2; Add 31 31 32; Add 28 28 31; Mul 31 20 8; Mul 32 19 2; Sub 31 31 32;
  Mul 32 16 31; Mul 8 19 8; Mul 2 20 2; Add 8 8 2; Mul 2 23 8; Sub 2 2 26; Add 32 32 2; Add 28 28 32;
  Mul 32 27 31; Mul 2 24 1; Add 32 32 2; Mul 32 22 32].
Definition casadi_f0_3 : list instruction := [
  Mul 31 24 31; Mul 1 27 1; Sub 31 31 1; Mul 31 30 31; Mul 8 34 8; Add 31 31 8; Add 32 32 31; Add 28 28 32;
  Out 1 5 28; Mul 28 10 6; Mul 32 11 35; Sub 28 28 32; Mul 32 9 28; Mul 6 11 6; Mul 31 10 35; Add 6 6 31;
  Mul 31 17 6; Add 32 32 31; Mul 35 0 35; Sub 32 32 35; Mul 35 20 28; Mul 31 19 6; Sub 35 35 31; Mul 31 16 35;
  Mul 28 19 28; Mul 6 20 6; Add 28 28 6; Mul 6 23 28; Add 31 31 6; Add 32 32 31; Mul 31 27 35; Mul 31 22 31;
  Mul 35 24 35; Mul 35 30 35; Mul 28 34 28; Add 35 35 28; Add 31 31 35; Add 32 32 31; Out 1 6 32; Mul 32 9 39;
  Add 36 36 33; Mul 33 17 36; Sub 32 32 33; Mul 33 20 39; Mul 31 19 36; Add 33 33 31; Mul 31 16 33;
  Mul 39 19 39; Mul 36 20 36; Sub 39 39 36; Mul 36 23 39; Add 31 31 36; Add 32 32 31; Mul 31 27 33;
  Mul 31 22 31; Mul 33 24 33; Mul 33 30 33; Mul 39 34 39; Add 33 33 39; Add 31 31 33; Add 32 32 31; Out 1 7 32;
  Mul 32 23 38; Mul 31 16 37; Sub 32 32 31; Mul 38 34 38; Mul 31 24 37; Mul 31 30 31; Sub 38 38 31;
  Mul 37 27 37; Mul 37 22 37; Sub 38 38 37; Add 32 32 38; Out 1 8 32; Mul 40 30 40; Mul 42 22 42; Sub 40 40 42;
  Out 1 9 40; Mul 40 10 4; Mul 42 11 3; Sub 40 40 42; Mul 42 17 40; Mul 10 10 3; Mul 11 11 4; Add 10 10 11;
  Mul 11 9 10; Sub 42 42 11; Mul 0 0 4; Sub 42 42 0; Mul 0 20 40; Mul 4 19 10; Sub 0 0 4; Mul 4 23 0;
  Mul 10 20 10; Mul 40 19 40; Add 10 10 40; Mul 40 16 10; Sub 4 4 40; Add 42 42 4; Mul 0 34 0; Mul 4 24 10;
  Mul 4 30 4; Sub 0 0 4; Mul 10 27 10; Mul 10 22 10; Sub 0 0 10; Add 42 42 0; Out 1 10 42; Add 47 47 46;
  Mul 9 9 47; Sub 43 43 41; Mul 17 17 43; Add 9 9 17; Mul 17 20 47; Mul 41 19 43; Sub 17 17 41; Mul 41 16 17;
  Mul 19 19 47; Mul 20 20 43; Add 19 19 20; Mul 20 23 19; Add 41 41 20; Add 9 9 41; Mul 41 27 17; Mul 41 22 41;
  Mul 17 24 17; Mul 17 30 17; Mul 19 34 19; Add 17 17 19; Add 41 41 17; Add 9 9 41; Out 1 11 9; Mul 23 23 45;
  Mul 16 16 44; Sub 23 23 16; Mul 34 34 45; Mul 24 24 44; Mul 24 30 24; Sub 34 34 24; Mul 27 27 44;
  Mul 27 22 27; Sub 34 34 27; Add 23 23 34; Out 1 12 23; Mul 30 30 49; Mul 22 22 50; Sub 30 30 22; Out 1 13 30;
  Lit 30 1 0].
Definition casadi_f0_4 : list instruction := [
  Out 1 14 30; Out 1 15 30; Out 1 16 30; Out 1 17 30; Out 1 18 30; Out 1 19 30; Out 1 20 30; Out 1 21 30;
  Out 1 22 30; Out 1 23 30; Out 1 24 30; Out 1 25 30].
Definition casadi_f0 : casadi_function := {| f_locals := casadi_f0_locals; f_code :=
  casadi_f0_1 ++ casadi_f0_2 ++ casadi_f0_3 ++ casadi_f0_4 |}.
Definition willow_mpc_cost_y_fun_jac_ut_xt : casadi_function * casadi_interface := (casadi_f0, {|
  f_name_in := ["i0"; "i1"; "i2"; "i3"; "i4"]; f_name_out := ["o0"; "o1"; "o2"]; f_sparsity_in := [casadi_s0; casadi_s1; casadi_s2; casadi_s2; casadi_s2]; f_sparsity_out := [casadi_s3; casadi_s4; casadi_s5];
  f_n_in := 5; f_n_out := 3; f_work := (5, 3, 0, 0)%nat |}).
End MpcCostYJac.
Export MpcCostYJac.

(** *** The second derivatives of the cost of a step of the MPC

    willow_mpc_cost_y_hess.c, generated by CasADi:
    the second derivatives of a combination of what is weighed at a step. *)

Module MpcCostYHess.
#[local] Open Scope string_scope.
#[local] Open Scope list_scope.

Definition casadi_s0 : list Z := [12; 1; 0; 12; 0; 1; 2; 3; 4; 5; 6; 7; 8; 9; 10; 11].
Definition casadi_s1 : list Z := [6; 1; 0; 6; 0; 1; 2; 3; 4; 5].
Definition casadi_s2 : list Z := [0; 0; 0].
Definition casadi_s3 : list Z := [15; 1; 0; 15; 0; 1; 2; 3; 4; 5; 6; 7; 8; 9; 10; 11; 12; 13; 14].
Definition casadi_s4 : list Z :=
  [18; 18; 0; 0; 0; 0; 0; 0; 0; 5; 10; 15; 20; 25; 25; 25; 25; 25; 25; 25; 25; 6; 7; 8; 9; 10; 6; 7; 8; 9; 10; 6; 7; 8; 9; 10; 6; 7; 8; 9; 10; 6; 7; 8; 9; 10].

Definition casadi_f0_locals : N := 62.
Definition casadi_f0_1 : list instruction := [
  Arg 0 0 1; Sin 1 0; Arg 2 0 2; Cos 3 2; Arg 4 0 3; Cos 5 4; Lit 6 (-34077999999999997) 18; Arg 7 3 1;
  Mul 8 6 7; Lit 9 41000000000000002 18; Mul 10 9 7; Add 8 8 10; Mul 10 5 8; Sin 4 4; Arg 11 0 4; Sin 12 11;
  Lit 13 (-78693) 9; Mul 14 13 7; Mul 15 12 14; Cos 11 11; Lit 16 18848000000000001 17; Mul 17 16 7;
  Mul 18 11 17; Add 15 15 18; Lit 18 62758999999999995 18; Mul 19 18 7; Add 15 15 19; Mul 19 4 15; Sub 10 10 19;
  Lit 19 528 4; Mul 20 19 7; Add 10 10 20; Mul 20 3 10; Sin 2 2; Mul 21 4 8; Mul 22 5 15; Add 21 21 22;
  Lit 22 24818000000000001 17; Mul 23 22 7; Add 21 21 23; Mul 23 2 21; Add 20 20 23; Mul 23 1 20; Cos 0 0;
  Mul 24 3 21; Mul 25 2 10; Sub 24 24 25; Lit 25 (-28499999999999998) 17; Mul 26 25 7; Add 24 24 26;
  Mul 26 0 24; Add 23 23 26; Arg 26 3 0; Mul 27 13 26; Mul 28 11 27; Sub 23 23 28; Mul 28 16 26; Mul 29 12 28;
  Add 23 23 29; Lit 29 26250000000000002 19; Mul 30 29 26; Sub 23 23 30; Lit 30 (-26250000000000002) 19;
  Mul 31 30 26; Sub 23 23 31; Arg 31 0 0; Sin 32 31; Mul 23 23 32; Mul 33 11 14; Mul 34 12 17; Sub 33 33 34;
  Mul 29 29 7; Add 33 33 29; Mul 30 30 7; Add 33 33 30; Mul 30 6 26; Mul 7 9 26; Add 30 30 7; Mul 7 5 30;
  Mul 29 12 27; Mul 34 11 28; Add 29 29 34; Mul 34 18 26; Add 29 29 34; Mul 34 4 29; Sub 7 7 34; Mul 34 19 26;
  Add 7 7 34; Mul 34 3 7; Mul 35 4 30; Mul 36 5 29; Add 35 35 36; Mul 36 22 26; Add 35 35 36; Mul 36 2 35;
  Add 34 34 36; Mul 36 1 34; Add 33 33 36; Mul 36 3 35; Mul 37 2 7; Sub 36 36 37; Mul 26 25 26; Add 36 36 26;
  Mul 26 0 36; Add 33 33 26; Cos 31 31; Mul 33 33 31; Add 23 23 33; Neg 23 23; Out 0 0 23; Mul 23 20 0;
  Mul 33 24 1; Sub 23 23 33; Mul 23 31 23; Mul 33 34 0; Mul 26 36 1; Sub 33 33 26; Mul 33 32 33; Sub 23 23 33;
  Out 0 1 23; Mul 33 21 3; Mul 26 10 2; Sub 33 33 26; Mul 26 1 33; Mul 37 21 2; Mul 38 10 3; Add 37 37 38;
  Mul 38 0 37; Sub 26 26 38; Mul 26 31 26; Mul 38 35 3; Mul 39 7 2; Sub 38 38 39; Mul 39 1 38; Mul 40 35 2;
  Mul 41 7 3; Add 40 40 41; Mul 41 0 40; Sub 39 39 41; Mul 39 32 39; Sub 26 26 39; Out 0 2 26; Mul 39 8 5;
  Mul 41 15 4; Sub 39 39 41; Mul 41 2 39; Mul 42 8 4; Mul 43 15 5; Add 42 42 43].
Definition casadi_f0_2 : list instruction := [
  Mul 43 3 42; Sub 41 41 43; Mul 43 1 41; Mul 44 3 39; Mul 45 2 42; Add 44 44 45; Mul 45 0 44; Add 43 43 45;
  Mul 43 31 43; Mul 45 30 5; Mul 46 29 4; Sub 45 45 46; Mul 46 2 45; Mul 47 30 4; Mul 48 29 5; Add 47 47 48;
  Mul 48 3 47; Sub 46 46 48; Mul 48 1 46; Mul 49 3 45; Mul 50 2 47; Add 49 49 50; Mul 50 0 49; Add 48 48 50;
  Mul 48 32 48; Sub 43 43 48; Out 0 3 43; Mul 48 14 11; Mul 50 17 12; Sub 48 48 50; Mul 50 5 48; Mul 51 2 50;
  Mul 52 4 48; Mul 53 3 52; Sub 51 51 53; Mul 53 1 51; Mul 54 3 50; Mul 55 2 52; Add 54 54 55; Mul 55 0 54;
  Add 53 53 55; Mul 55 27 12; Add 53 53 55; Mul 55 28 11; Add 53 53 55; Mul 53 31 53; Mul 55 27 11;
  Mul 56 28 12; Sub 55 55 56; Mul 56 5 55; Mul 57 2 56; Mul 58 4 55; Mul 59 3 58; Sub 57 57 59; Mul 59 1 57;
  Mul 60 14 12; Mul 61 17 11; Add 60 60 61; Sub 59 59 60; Mul 60 3 56; Mul 61 2 58; Add 60 60 61; Mul 61 0 60;
  Add 59 59 61; Mul 59 32 59; Sub 53 53 59; Out 0 4 53; Out 0 5 23; Arg 23 3 2; Mul 6 6 23; Mul 9 9 23;
  Add 6 6 9; Mul 9 5 6; Mul 13 13 23; Mul 59 12 13; Mul 16 16 23; Mul 61 11 16; Add 59 59 61; Mul 18 18 23;
  Add 59 59 18; Mul 18 4 59; Sub 9 9 18; Mul 19 19 23; Add 9 9 19; Mul 19 2 9; Mul 18 4 6; Mul 61 5 59;
  Add 18 18 61; Mul 22 22 23; Add 18 18 22; Mul 22 3 18; Sub 19 19 22; Mul 25 25 23; Sub 19 19 25; Mul 20 32 20;
  Add 19 19 20; Mul 34 31 34; Add 19 19 34; Mul 19 19 1; Mul 34 3 9; Mul 20 2 18; Add 34 34 20; Mul 24 32 24;
  Add 34 34 24; Mul 36 31 36; Add 34 34 36; Mul 34 34 0; Add 19 19 34; Neg 19 19; Out 0 6 19; Mul 19 9 3;
  Mul 34 18 2; Add 19 19 34; Mul 33 32 33; Add 19 19 33; Mul 38 31 38; Add 19 19 38; Mul 19 0 19; Mul 38 18 3;
  Mul 33 9 2; Sub 38 38 33; Mul 37 32 37; Sub 38 38 37; Mul 40 31 40; Sub 38 38 40; Mul 38 1 38; Sub 19 19 38;
  Out 0 7 19; Mul 41 32 41; Mul 38 6 4; Mul 40 59 5; Add 38 38 40; Mul 40 2 38; Mul 37 6 5; Mul 33 59 4;
  Sub 37 37 33; Mul 33 3 37; Add 40 40 33; Sub 41 41 40; Mul 46 31 46; Add 41 41 46; Mul 41 0 41; Mul 46 2 37;
  Mul 40 3 38; Sub 46 46 40; Mul 44 32 44; Add 46 46 44; Mul 49 31 49; Add 46 46 49].
Definition casadi_f0_3 : list instruction := [
  Mul 46 1 46; Sub 41 41 46; Out 0 8 41; Mul 51 32 51; Mul 46 13 11; Mul 49 16 12; Sub 46 46 49; Mul 49 4 46;
  Mul 44 2 49; Mul 40 5 46; Mul 33 3 40; Add 44 44 33; Sub 51 51 44; Mul 57 31 57; Add 51 51 57; Mul 51 0 51;
  Mul 57 2 40; Mul 44 3 49; Sub 57 57 44; Mul 54 32 54; Add 57 57 54; Mul 60 31 60; Add 57 57 60; Mul 57 1 57;
  Sub 51 51 57; Out 0 9 51; Out 0 10 26; Out 0 11 19; Mul 19 1 9; Mul 26 0 18; Add 19 19 26; Mul 26 32 0;
  Mul 57 26 10; Sub 19 19 57; Mul 57 32 1; Mul 60 57 21; Add 19 19 60; Mul 60 31 0; Mul 54 60 7; Sub 19 19 54;
  Mul 54 31 1; Mul 44 54 35; Add 19 19 44; Mul 19 19 2; Mul 9 0 9; Mul 18 1 18; Sub 9 9 18; Mul 10 57 10;
  Add 9 9 10; Mul 21 26 21; Add 9 9 21; Mul 7 54 7; Add 9 9 7; Mul 35 60 35; Add 9 9 35; Mul 9 9 3; Add 19 19 9;
  Neg 19 19; Out 0 12 19; Mul 19 0 37; Mul 9 1 38; Sub 19 19 9; Mul 9 26 42; Add 19 19 9; Mul 9 57 39;
  Add 19 19 9; Mul 9 60 47; Add 19 19 9; Mul 9 54 45; Add 19 19 9; Mul 19 3 19; Mul 39 26 39; Mul 38 0 38;
  Mul 37 1 37; Add 38 38 37; Mul 42 57 42; Add 38 38 42; Sub 39 39 38; Mul 47 54 47; Sub 39 39 47; Mul 45 60 45;
  Add 39 39 45; Mul 39 2 39; Sub 19 19 39; Out 0 13 19; Mul 39 0 40; Mul 45 1 49; Sub 39 39 45; Mul 45 26 52;
  Add 39 39 45; Mul 45 57 50; Add 39 39 45; Mul 45 60 58; Add 39 39 45; Mul 45 54 56; Add 39 39 45; Mul 39 3 39;
  Mul 50 26 50; Mul 49 0 49; Mul 40 1 40; Add 49 49 40; Mul 52 57 52; Add 49 49 52; Sub 50 50 49; Mul 58 54 58;
  Sub 50 50 58; Mul 56 60 56; Add 50 50 56; Mul 50 2 50; Sub 39 39 50; Out 0 14 39; Out 0 15 43; Out 0 16 41;
  Out 0 17 19; Mul 19 0 2; Mul 41 1 3; Sub 19 19 41; Mul 41 19 6; Mul 1 1 2; Mul 0 0 3; Add 1 1 0; Mul 0 1 59;
  Sub 41 41 0; Mul 0 26 3; Mul 43 57 2; Add 0 0 43; Mul 43 0 8; Add 41 41 43; Mul 57 57 3; Mul 26 26 2;
  Sub 57 57 26; Mul 26 57 15; Sub 41 41 26; Mul 26 60 3; Mul 43 54 2; Add 26 26 43; Mul 43 26 30; Add 41 41 43;
  Mul 54 54 3; Mul 60 60 2; Sub 54 54 60; Mul 60 54 29; Sub 41 41 60; Mul 41 41 4; Mul 6 1 6; Mul 59 19 59;
  Add 6 6 59; Mul 8 57 8; Add 6 6 8].
Definition casadi_f0_4 : list instruction := [
  Mul 15 0 15; Add 6 6 15; Mul 30 54 30; Add 6 6 30; Mul 29 26 29; Add 6 6 29; Mul 6 6 5; Add 41 41 6;
  Neg 41 41; Out 0 18 41; Mul 41 1 46; Mul 6 57 48; Add 41 41 6; Mul 6 54 55; Add 41 41 6; Mul 41 5 41;
  Mul 46 19 46; Mul 48 0 48; Add 46 46 48; Mul 55 26 55; Add 46 46 55; Mul 46 4 46; Add 41 41 46; Neg 41 41;
  Out 0 19 41; Out 0 20 53; Out 0 21 51; Out 0 22 39; Out 0 23 41; Mul 19 19 5; Mul 1 1 4; Sub 19 19 1;
  Mul 13 19 13; Mul 0 0 5; Mul 57 57 4; Sub 0 0 57; Mul 57 0 14; Add 13 13 57; Mul 57 31 17; Sub 13 13 57;
  Mul 26 26 5; Mul 54 54 4; Sub 26 26 54; Mul 54 26 27; Add 13 13 54; Mul 54 32 28; Add 13 13 54; Mul 13 13 12;
  Mul 19 19 16; Mul 31 31 14; Add 19 19 31; Mul 0 0 17; Add 19 19 0; Mul 32 32 27; Sub 19 19 32; Mul 26 26 28;
  Add 19 19 26; Mul 19 19 11; Add 13 13 19; Neg 13 13; Out 0 24 13].
Definition casadi_f0 : casadi_function := {| f_locals := casadi_f0_locals; f_code :=
  casadi_f0_1 ++ casadi_f0_2 ++ casadi_f0_3 ++ casadi_f0_4 |}.
Definition willow_mpc_cost_y_hess : casadi_function * casadi_interface := (casadi_f0, {|
  f_name_in := ["i0"; "i1"; "i2"; "i3"; "i4"; "i5"]; f_name_out := ["o0"]; f_sparsity_in := [casadi_s0; casadi_s1; casadi_s2; casadi_s3; casadi_s2; casadi_s2]; f_sparsity_out := [casadi_s4];
  f_n_in := 6; f_n_out := 1; f_work := (6, 1, 0, 0)%nat |}).
End MpcCostYHess.
Export MpcCostYHess.

(** *** The cost of the last state of the MPC

    willow_mpc_cost_y_e_fun.c, generated by CasADi:
    what is weighed at the end: the position of the flange and the velocities. *)

Module MpcCostYE.
#[local] Open Scope string_scope.
#[local] Open Scope list_scope.

Definition casadi_s0 : list Z := [12; 1; 0; 12; 0; 1; 2; 3; 4; 5; 6; 7; 8; 9; 10; 11].
Definition casadi_s1 : list Z := [0; 1; 0; 0].
Definition casadi_s2 : list Z := [0; 0; 0].
Definition casadi_s3 : list Z := [9; 1; 0; 9; 0; 1; 2; 3; 4; 5; 6; 7; 8].

Definition casadi_f0_locals : N := 24.
Definition casadi_f0_1 : list instruction := [
  Lit 0 (-28499999999999998) 17; Arg 1 0 0; Cos 2 1; Arg 3 0 1; Cos 4 3; Mul 5 2 4; Mul 6 0 5;
  Lit 7 (-26250000000000002) 19; Sin 1 1; Mul 8 7 1; Sub 6 6 8; Lit 8 24818000000000001 17; Arg 9 0 2; Cos 10 9;
  Mul 11 5 10; Sin 3 3; Mul 12 2 3; Sin 9 9; Mul 13 12 9; Add 11 11 13; Mul 13 8 11; Lit 14 528 4; Mul 12 12 10;
  Mul 5 5 9; Sub 12 12 5; Mul 5 14 12; Add 13 13 5; Add 6 6 13; Lit 13 62758999999999995 18; Arg 5 0 3;
  Cos 15 5; Mul 16 11 15; Sin 5 5; Mul 17 12 5; Sub 16 16 17; Mul 17 13 16; Lit 18 41000000000000002 18;
  Mul 11 11 5; Mul 12 12 15; Add 11 11 12; Mul 12 18 11; Lit 19 26250000000000002 19; Mul 20 19 1; Sub 12 12 20;
  Add 17 17 12; Add 6 6 17; Lit 17 18848000000000001 17; Arg 12 0 4; Cos 20 12; Mul 21 16 20; Sin 12 12;
  Mul 22 1 12; Add 21 21 22; Mul 21 17 21; Lit 22 (-78693) 9; Mul 16 16 12; Mul 23 1 20; Sub 16 16 23;
  Mul 16 22 16; Lit 23 (-34077999999999997) 18; Mul 11 23 11; Add 16 16 11; Add 21 21 16; Add 6 6 21; Out 0 0 6;
  Mul 6 1 4; Mul 21 0 6; Mul 7 7 2; Add 21 21 7; Mul 7 6 10; Mul 1 1 3; Mul 16 1 9; Add 7 7 16; Mul 16 8 7;
  Mul 1 1 10; Mul 6 6 9; Sub 1 1 6; Mul 6 14 1; Add 16 16 6; Add 21 21 16; Mul 16 7 15; Mul 6 1 5; Sub 16 16 6;
  Mul 6 13 16; Mul 19 19 2; Mul 7 7 5; Mul 1 1 15; Add 7 7 1; Mul 1 18 7; Add 19 19 1; Add 6 6 19; Add 21 21 6;
  Mul 6 16 20; Mul 19 2 12; Sub 6 6 19; Mul 6 17 6; Mul 16 16 12; Mul 2 2 20; Add 16 16 2; Mul 16 22 16;
  Mul 7 23 7; Add 16 16 7; Add 6 6 16; Add 21 21 6; Out 0 1 21; Lit 21 14324999999999999 17; Mul 0 0 3;
  Sub 21 21 0; Mul 0 4 9; Mul 6 3 10; Sub 0 0 6; Mul 8 8 0; Mul 3 3 9; Mul 4 4 10; Add 3 3 4; Mul 14 14 3;
  Add 8 8 14; Add 21 21 8; Mul 8 0 15; Mul 14 3 5; Sub 8 8 14; Mul 13 13 8; Mul 0 0 5; Mul 3 3 15; Add 0 0 3;
  Mul 18 18 0; Add 13 13 18; Add 21 21 13; Mul 20 8 20; Mul 17 17 20; Mul 8 8 12; Mul 22 22 8; Mul 23 23 0;
  Add 22 22 23; Add 17 17 22; Add 21 21 17; Out 0 2 21; Arg 21 0 6; Out 0 3 21; Arg 21 0 7; Out 0 4 21;
  Arg 21 0 8; Out 0 5 21; Arg 21 0 9; Out 0 6 21; Arg 21 0 10; Out 0 7 21; Arg 21 0 11; Out 0 8 21].
Definition casadi_f0 : casadi_function := {| f_locals := casadi_f0_locals; f_code :=
  casadi_f0_1 |}.
Definition willow_mpc_cost_y_e_fun : casadi_function * casadi_interface := (casadi_f0, {|
  f_name_in := ["i0"; "i1"; "i2"; "i3"; "i4"]; f_name_out := ["o0"]; f_sparsity_in := [casadi_s0; casadi_s1; casadi_s1; casadi_s2; casadi_s2]; f_sparsity_out := [casadi_s3];
  f_n_in := 5; f_n_out := 1; f_work := (5, 1, 0, 0)%nat |}).
End MpcCostYE.
Export MpcCostYE.

(** *** The cost of the last state of the MPC and its Jacobian

    willow_mpc_cost_y_e_fun_jac_ut_xt.c, generated by CasADi:
    what is weighed at the end, and its derivatives by the state. *)

Module MpcCostYEJac.
#[local] Open Scope string_scope.
#[local] Open Scope list_scope.

Definition casadi_s0 : list Z := [12; 1; 0; 12; 0; 1; 2; 3; 4; 5; 6; 7; 8; 9; 10; 11].
Definition casadi_s1 : list Z := [0; 1; 0; 0].
Definition casadi_s2 : list Z := [0; 0; 0].
Definition casadi_s3 : list Z := [9; 1; 0; 9; 0; 1; 2; 3; 4; 5; 6; 7; 8].
Definition casadi_s4 : list Z :=
  [12; 9; 0; 5; 10; 14; 15; 16; 17; 18; 19; 20; 0; 1; 2; 3; 4; 0; 1; 2; 3; 4; 1; 2; 3; 4; 6; 7; 8; 9; 10; 11].
Definition casadi_s5 : list Z := [9; 0; 0].

Definition casadi_f0_locals : N := 54.
Definition casadi_f0_1 : list instruction := [
  Lit 0 (-28499999999999998) 17; Arg 1 0 0; Cos 2 1; Arg 3 0 1; Cos 4 3; Mul 5 2 4; Mul 6 0 5;
  Lit 7 (-26250000000000002) 19; Sin 1 1; Mul 8 7 1; Sub 6 6 8; Lit 9 24818000000000001 17; Arg 10 0 2;
  Cos 11 10; Mul 12 5 11; Sin 3 3; Mul 13 2 3; Sin 10 10; Mul 14 13 10; Add 15 12 14; Mul 16 9 15; Lit 17 528 4;
  Mul 18 13 11; Mul 19 5 10; Sub 18 18 19; Mul 19 17 18; Add 16 16 19; Add 6 6 16; Lit 16 62758999999999995 18;
  Arg 19 0 3; Cos 20 19; Mul 21 15 20; Sin 19 19; Mul 22 18 19; Sub 21 21 22; Mul 22 16 21;
  Lit 23 41000000000000002 18; Mul 15 15 19; Mul 24 18 20; Add 15 15 24; Mul 24 23 15;
  Lit 25 26250000000000002 19; Mul 26 25 1; Sub 24 24 26; Add 22 22 24; Add 6 6 22; Lit 22 18848000000000001 17;
  Arg 24 0 4; Cos 27 24; Mul 28 21 27; Sin 24 24; Mul 29 1 24; Add 28 28 29; Mul 29 22 28; Lit 30 (-78693) 9;
  Mul 31 21 24; Mul 32 1 27; Sub 33 31 32; Mul 33 30 33; Lit 34 (-34077999999999997) 18; Mul 35 34 15;
  Add 33 33 35; Add 29 29 33; Add 6 6 29; Out 0 0 6; Mul 6 1 4; Mul 29 0 6; Mul 7 7 2; Add 29 29 7; Mul 33 6 11;
  Mul 35 1 3; Mul 36 35 10; Add 37 33 36; Mul 38 9 37; Mul 39 35 11; Mul 40 6 10; Sub 39 39 40; Mul 40 17 39;
  Add 38 38 40; Add 29 29 38; Mul 38 37 20; Mul 40 39 19; Sub 38 38 40; Mul 40 16 38; Mul 25 25 2; Mul 37 37 19;
  Mul 41 39 20; Add 37 37 41; Mul 41 23 37; Add 41 25 41; Add 40 40 41; Add 29 29 40; Mul 40 38 27; Mul 41 2 24;
  Sub 40 40 41; Mul 41 22 40; Mul 42 38 24; Mul 43 2 27; Add 42 42 43; Mul 43 30 42; Mul 44 34 37; Add 43 43 44;
  Add 41 41 43; Add 29 29 41; Out 0 1 29; Lit 29 14324999999999999 17; Mul 41 0 3; Sub 29 29 41; Mul 41 4 10;
  Mul 43 3 11; Sub 44 41 43; Mul 45 9 44; Mul 46 3 10; Mul 47 4 11; Add 48 46 47; Mul 49 17 48; Add 45 45 49;
  Add 29 29 45; Mul 45 44 20; Mul 49 48 19; Sub 45 45 49; Mul 49 16 45; Mul 44 44 19; Mul 48 48 20;
  Add 44 44 48; Mul 48 23 44; Add 49 49 48; Add 29 29 49; Mul 49 45 27; Mul 48 22 49; Mul 50 45 24;
  Mul 51 30 50; Mul 52 34 44; Add 51 51 52; Add 48 48 51; Add 29 29 48; Out 0 2 29; Arg 29 0 6; Out 0 3 29;
  Arg 29 0 7; Out 0 4 29; Arg 29 0 8; Out 0 5 29; Arg 29 0 9; Out 0 6 29; Arg 29 0 10; Out 0 7 29; Arg 29 0 11;
  Out 0 8 29].
Definition casadi_f0_2 : list instruction := [
  Mul 29 4 1; Mul 48 10 29; Mul 51 3 1; Mul 52 11 51; Sub 48 48 52; Mul 52 17 48; Mul 53 11 29; Mul 51 10 51;
  Add 53 53 51; Mul 51 9 53; Sub 52 52 51; Mul 29 0 29; Add 29 29 7; Sub 52 52 29; Mul 29 20 48; Mul 7 19 53;
  Sub 29 29 7; Mul 7 23 29; Sub 7 7 25; Mul 53 20 53; Mul 48 19 48; Add 53 53 48; Mul 48 16 53; Sub 7 7 48;
  Add 52 52 7; Mul 7 24 2; Mul 48 27 53; Sub 7 7 48; Mul 7 22 7; Mul 29 34 29; Mul 53 24 53; Mul 48 27 2;
  Add 53 53 48; Mul 53 30 53; Sub 29 29 53; Add 7 7 29; Add 52 52 7; Out 1 0 52; Mul 52 10 5; Mul 7 11 13;
  Sub 52 52 7; Mul 7 9 52; Mul 5 11 5; Mul 29 10 13; Add 5 5 29; Mul 29 17 5; Add 7 7 29; Mul 13 0 13;
  Sub 7 7 13; Mul 13 20 52; Mul 29 19 5; Sub 13 13 29; Mul 29 16 13; Mul 52 19 52; Mul 5 20 5; Add 52 52 5;
  Mul 5 23 52; Add 29 29 5; Add 7 7 29; Mul 29 27 13; Mul 29 22 29; Mul 13 24 13; Mul 13 30 13; Mul 52 34 52;
  Add 13 13 52; Add 29 29 13; Add 7 7 29; Out 1 1 7; Mul 7 9 18; Add 14 14 12; Mul 12 17 14; Sub 7 7 12;
  Mul 12 20 18; Mul 29 19 14; Add 12 12 29; Mul 29 16 12; Mul 18 19 18; Mul 14 20 14; Sub 18 18 14;
  Mul 14 23 18; Add 29 29 14; Add 7 7 29; Mul 29 27 12; Mul 29 22 29; Mul 12 24 12; Mul 12 30 12; Mul 18 34 18;
  Add 12 12 18; Add 29 29 12; Add 7 7 29; Out 1 2 7; Mul 7 23 21; Mul 29 16 15; Sub 7 7 29; Mul 21 34 21;
  Mul 29 24 15; Mul 29 30 29; Sub 21 21 29; Mul 15 27 15; Mul 15 22 15; Sub 21 21 15; Add 7 7 21; Out 1 3 7;
  Sub 32 32 31; Mul 32 22 32; Mul 28 30 28; Add 32 32 28; Out 1 4 32; Mul 32 4 2; Mul 28 0 32; Sub 28 28 8;
  Mul 8 11 32; Mul 2 3 2; Mul 31 10 2; Add 8 8 31; Mul 31 9 8; Mul 2 11 2; Mul 32 10 32; Sub 2 2 32;
  Mul 32 17 2; Add 31 31 32; Add 28 28 31; Mul 31 20 8; Mul 32 19 2; Sub 31 31 32; Mul 32 16 31; Mul 8 19 8;
  Mul 2 20 2; Add 8 8 2; Mul 2 23 8; Sub 2 2 26; Add 32 32 2; Add 28 28 32; Mul 32 27 31; Mul 2 24 1;
  Add 32 32 2; Mul 32 22 32; Mul 31 24 31; Mul 1 27 1; Sub 31 31 1; Mul 31 30 31; Mul 8 34 8; Add 31 31 8;
  Add 32 32 31; Add 28 28 32; Out 1 5 28; Mul 28 10 6; Mul 32 11 35; Sub 28 28 32].
Definition casadi_f0_3 : list instruction := [
  Mul 32 9 28; Mul 6 11 6; Mul 31 10 35; Add 6 6 31; Mul 31 17 6; Add 32 32 31; Mul 35 0 35; Sub 32 32 35;
  Mul 35 20 28; Mul 31 19 6; Sub 35 35 31; Mul 31 16 35; Mul 28 19 28; Mul 6 20 6; Add 28 28 6; Mul 6 23 28;
  Add 31 31 6; Add 32 32 31; Mul 31 27 35; Mul 31 22 31; Mul 35 24 35; Mul 35 30 35; Mul 28 34 28; Add 35 35 28;
  Add 31 31 35; Add 32 32 31; Out 1 6 32; Mul 32 9 39; Add 36 36 33; Mul 33 17 36; Sub 32 32 33; Mul 33 20 39;
  Mul 31 19 36; Add 33 33 31; Mul 31 16 33; Mul 39 19 39; Mul 36 20 36; Sub 39 39 36; Mul 36 23 39;
  Add 31 31 36; Add 32 32 31; Mul 31 27 33; Mul 31 22 31; Mul 33 24 33; Mul 33 30 33; Mul 39 34 39;
  Add 33 33 39; Add 31 31 33; Add 32 32 31; Out 1 7 32; Mul 32 23 38; Mul 31 16 37; Sub 32 32 31; Mul 38 34 38;
  Mul 31 24 37; Mul 31 30 31; Sub 38 38 31; Mul 37 27 37; Mul 37 22 37; Sub 38 38 37; Add 32 32 38; Out 1 8 32;
  Mul 40 30 40; Mul 42 22 42; Sub 40 40 42; Out 1 9 40; Mul 40 10 4; Mul 42 11 3; Sub 40 40 42; Mul 42 17 40;
  Mul 10 10 3; Mul 11 11 4; Add 10 10 11; Mul 11 9 10; Sub 42 42 11; Mul 0 0 4; Sub 42 42 0; Mul 0 20 40;
  Mul 4 19 10; Sub 0 0 4; Mul 4 23 0; Mul 10 20 10; Mul 40 19 40; Add 10 10 40; Mul 40 16 10; Sub 4 4 40;
  Add 42 42 4; Mul 0 34 0; Mul 4 24 10; Mul 4 30 4; Sub 0 0 4; Mul 10 27 10; Mul 10 22 10; Sub 0 0 10;
  Add 42 42 0; Out 1 10 42; Add 47 47 46; Mul 9 9 47; Sub 43 43 41; Mul 17 17 43; Add 9 9 17; Mul 17 20 47;
  Mul 41 19 43; Sub 17 17 41; Mul 41 16 17; Mul 19 19 47; Mul 20 20 43; Add 19 19 20; Mul 20 23 19;
  Add 41 41 20; Add 9 9 41; Mul 41 27 17; Mul 41 22 41; Mul 17 24 17; Mul 17 30 17; Mul 19 34 19; Add 17 17 19;
  Add 41 41 17; Add 9 9 41; Out 1 11 9; Mul 23 23 45; Mul 16 16 44; Sub 23 23 16; Mul 34 34 45; Mul 24 24 44;
  Mul 24 30 24; Sub 34 34 24; Mul 27 27 44; Mul 27 22 27; Sub 34 34 27; Add 23 23 34; Out 1 12 23; Mul 30 30 49;
  Mul 22 22 50; Sub 30 30 22; Out 1 13 30; Lit 30 1 0; Out 1 14 30; Out 1 15 30; Out 1 16 30; Out 1 17 30;
  Out 1 18 30; Out 1 19 30].
Definition casadi_f0 : casadi_function := {| f_locals := casadi_f0_locals; f_code :=
  casadi_f0_1 ++ casadi_f0_2 ++ casadi_f0_3 |}.
Definition willow_mpc_cost_y_e_fun_jac_ut_xt : casadi_function * casadi_interface := (casadi_f0, {|
  f_name_in := ["i0"; "i1"; "i2"; "i3"; "i4"]; f_name_out := ["o0"; "o1"; "o2"]; f_sparsity_in := [casadi_s0; casadi_s1; casadi_s1; casadi_s2; casadi_s2]; f_sparsity_out := [casadi_s3; casadi_s4; casadi_s5];
  f_n_in := 5; f_n_out := 3; f_work := (5, 3, 0, 0)%nat |}).
End MpcCostYEJac.
Export MpcCostYEJac.

(** *** The second derivatives of the cost of the last state of the MPC

    willow_mpc_cost_y_e_hess.c, generated by CasADi:
    the second derivatives of a combination of what is weighed at the end. *)

Module MpcCostYEHess.
#[local] Open Scope string_scope.
#[local] Open Scope list_scope.

Definition casadi_s0 : list Z := [12; 1; 0; 12; 0; 1; 2; 3; 4; 5; 6; 7; 8; 9; 10; 11].
Definition casadi_s1 : list Z := [0; 1; 0; 0].
Definition casadi_s2 : list Z := [9; 1; 0; 9; 0; 1; 2; 3; 4; 5; 6; 7; 8].
Definition casadi_s3 : list Z := [0; 0; 0].
Definition casadi_s4 : list Z :=
  [12; 12; 0; 5; 10; 15; 20; 25; 25; 25; 25; 25; 25; 25; 25; 0; 1; 2; 3; 4; 0; 1; 2; 3; 4; 0; 1; 2; 3; 4; 0; 1; 2; 3; 4; 0; 1; 2; 3; 4].

Definition casadi_f0_locals : N := 62.
Definition casadi_f0_1 : list instruction := [
  Arg 0 0 1; Sin 1 0; Arg 2 0 2; Cos 3 2; Arg 4 0 3; Cos 5 4; Lit 6 (-34077999999999997) 18; Arg 7 3 1;
  Mul 8 6 7; Lit 9 41000000000000002 18; Mul 10 9 7; Add 8 8 10; Mul 10 5 8; Sin 4 4; Arg 11 0 4; Sin 12 11;
  Lit 13 (-78693) 9; Mul 14 13 7; Mul 15 12 14; Cos 11 11; Lit 16 18848000000000001 17; Mul 17 16 7;
  Mul 18 11 17; Add 15 15 18; Lit 18 62758999999999995 18; Mul 19 18 7; Add 15 15 19; Mul 19 4 15; Sub 10 10 19;
  Lit 19 528 4; Mul 20 19 7; Add 10 10 20; Mul 20 3 10; Sin 2 2; Mul 21 4 8; Mul 22 5 15; Add 21 21 22;
  Lit 22 24818000000000001 17; Mul 23 22 7; Add 21 21 23; Mul 23 2 21; Add 20 20 23; Mul 23 1 20; Cos 0 0;
  Mul 24 3 21; Mul 25 2 10; Sub 24 24 25; Lit 25 (-28499999999999998) 17; Mul 26 25 7; Add 24 24 26;
  Mul 26 0 24; Add 23 23 26; Arg 26 3 0; Mul 27 13 26; Mul 28 11 27; Sub 23 23 28; Mul 28 16 26; Mul 29 12 28;
  Add 23 23 29; Lit 29 26250000000000002 19; Mul 30 29 26; Sub 23 23 30; Lit 30 (-26250000000000002) 19;
  Mul 31 30 26; Sub 23 23 31; Arg 31 0 0; Sin 32 31; Mul 23 23 32; Mul 33 11 14; Mul 34 12 17; Sub 33 33 34;
  Mul 29 29 7; Add 33 33 29; Mul 30 30 7; Add 33 33 30; Mul 30 6 26; Mul 7 9 26; Add 30 30 7; Mul 7 5 30;
  Mul 29 12 27; Mul 34 11 28; Add 29 29 34; Mul 34 18 26; Add 29 29 34; Mul 34 4 29; Sub 7 7 34; Mul 34 19 26;
  Add 7 7 34; Mul 34 3 7; Mul 35 4 30; Mul 36 5 29; Add 35 35 36; Mul 36 22 26; Add 35 35 36; Mul 36 2 35;
  Add 34 34 36; Mul 36 1 34; Add 33 33 36; Mul 36 3 35; Mul 37 2 7; Sub 36 36 37; Mul 26 25 26; Add 36 36 26;
  Mul 26 0 36; Add 33 33 26; Cos 31 31; Mul 33 33 31; Add 23 23 33; Neg 23 23; Out 0 0 23; Mul 23 20 0;
  Mul 33 24 1; Sub 23 23 33; Mul 23 31 23; Mul 33 34 0; Mul 26 36 1; Sub 33 33 26; Mul 33 32 33; Sub 23 23 33;
  Out 0 1 23; Mul 33 21 3; Mul 26 10 2; Sub 33 33 26; Mul 26 1 33; Mul 37 21 2; Mul 38 10 3; Add 37 37 38;
  Mul 38 0 37; Sub 26 26 38; Mul 26 31 26; Mul 38 35 3; Mul 39 7 2; Sub 38 38 39; Mul 39 1 38; Mul 40 35 2;
  Mul 41 7 3; Add 40 40 41; Mul 41 0 40; Sub 39 39 41; Mul 39 32 39; Sub 26 26 39; Out 0 2 26; Mul 39 8 5;
  Mul 41 15 4; Sub 39 39 41; Mul 41 2 39; Mul 42 8 4; Mul 43 15 5; Add 42 42 43].
Definition casadi_f0_2 : list instruction := [
  Mul 43 3 42; Sub 41 41 43; Mul 43 1 41; Mul 44 3 39; Mul 45 2 42; Add 44 44 45; Mul 45 0 44; Add 43 43 45;
  Mul 43 31 43; Mul 45 30 5; Mul 46 29 4; Sub 45 45 46; Mul 46 2 45; Mul 47 30 4; Mul 48 29 5; Add 47 47 48;
  Mul 48 3 47; Sub 46 46 48; Mul 48 1 46; Mul 49 3 45; Mul 50 2 47; Add 49 49 50; Mul 50 0 49; Add 48 48 50;
  Mul 48 32 48; Sub 43 43 48; Out 0 3 43; Mul 48 14 11; Mul 50 17 12; Sub 48 48 50; Mul 50 5 48; Mul 51 2 50;
  Mul 52 4 48; Mul 53 3 52; Sub 51 51 53; Mul 53 1 51; Mul 54 3 50; Mul 55 2 52; Add 54 54 55; Mul 55 0 54;
  Add 53 53 55; Mul 55 27 12; Add 53 53 55; Mul 55 28 11; Add 53 53 55; Mul 53 31 53; Mul 55 27 11;
  Mul 56 28 12; Sub 55 55 56; Mul 56 5 55; Mul 57 2 56; Mul 58 4 55; Mul 59 3 58; Sub 57 57 59; Mul 59 1 57;
  Mul 60 14 12; Mul 61 17 11; Add 60 60 61; Sub 59 59 60; Mul 60 3 56; Mul 61 2 58; Add 60 60 61; Mul 61 0 60;
  Add 59 59 61; Mul 59 32 59; Sub 53 53 59; Out 0 4 53; Out 0 5 23; Arg 23 3 2; Mul 6 6 23; Mul 9 9 23;
  Add 6 6 9; Mul 9 5 6; Mul 13 13 23; Mul 59 12 13; Mul 16 16 23; Mul 61 11 16; Add 59 59 61; Mul 18 18 23;
  Add 59 59 18; Mul 18 4 59; Sub 9 9 18; Mul 19 19 23; Add 9 9 19; Mul 19 2 9; Mul 18 4 6; Mul 61 5 59;
  Add 18 18 61; Mul 22 22 23; Add 18 18 22; Mul 22 3 18; Sub 19 19 22; Mul 25 25 23; Sub 19 19 25; Mul 20 32 20;
  Add 19 19 20; Mul 34 31 34; Add 19 19 34; Mul 19 19 1; Mul 34 3 9; Mul 20 2 18; Add 34 34 20; Mul 24 32 24;
  Add 34 34 24; Mul 36 31 36; Add 34 34 36; Mul 34 34 0; Add 19 19 34; Neg 19 19; Out 0 6 19; Mul 19 9 3;
  Mul 34 18 2; Add 19 19 34; Mul 33 32 33; Add 19 19 33; Mul 38 31 38; Add 19 19 38; Mul 19 0 19; Mul 38 18 3;
  Mul 33 9 2; Sub 38 38 33; Mul 37 32 37; Sub 38 38 37; Mul 40 31 40; Sub 38 38 40; Mul 38 1 38; Sub 19 19 38;
  Out 0 7 19; Mul 41 32 41; Mul 38 6 4; Mul 40 59 5; Add 38 38 40; Mul 40 2 38; Mul 37 6 5; Mul 33 59 4;
  Sub 37 37 33; Mul 33 3 37; Add 40 40 33; Sub 41 41 40; Mul 46 31 46; Add 41 41 46; Mul 41 0 41; Mul 46 2 37;
  Mul 40 3 38; Sub 46 46 40; Mul 44 32 44; Add 46 46 44; Mul 49 31 49; Add 46 46 49].
Definition casadi_f0_3 : list instruction := [
  Mul 46 1 46; Sub 41 41 46; Out 0 8 41; Mul 51 32 51; Mul 46 13 11; Mul 49 16 12; Sub 46 46 49; Mul 49 4 46;
  Mul 44 2 49; Mul 40 5 46; Mul 33 3 40; Add 44 44 33; Sub 51 51 44; Mul 57 31 57; Add 51 51 57; Mul 51 0 51;
  Mul 57 2 40; Mul 44 3 49; Sub 57 57 44; Mul 54 32 54; Add 57 57 54; Mul 60 31 60; Add 57 57 60; Mul 57 1 57;
  Sub 51 51 57; Out 0 9 51; Out 0 10 26; Out 0 11 19; Mul 19 1 9; Mul 26 0 18; Add 19 19 26; Mul 26 32 0;
  Mul 57 26 10; Sub 19 19 57; Mul 57 32 1; Mul 60 57 21; Add 19 19 60; Mul 60 31 0; Mul 54 60 7; Sub 19 19 54;
  Mul 54 31 1; Mul 44 54 35; Add 19 19 44; Mul 19 19 2; Mul 9 0 9; Mul 18 1 18; Sub 9 9 18; Mul 10 57 10;
  Add 9 9 10; Mul 21 26 21; Add 9 9 21; Mul 7 54 7; Add 9 9 7; Mul 35 60 35; Add 9 9 35; Mul 9 9 3; Add 19 19 9;
  Neg 19 19; Out 0 12 19; Mul 19 0 37; Mul 9 1 38; Sub 19 19 9; Mul 9 26 42; Add 19 19 9; Mul 9 57 39;
  Add 19 19 9; Mul 9 60 47; Add 19 19 9; Mul 9 54 45; Add 19 19 9; Mul 19 3 19; Mul 39 26 39; Mul 38 0 38;
  Mul 37 1 37; Add 38 38 37; Mul 42 57 42; Add 38 38 42; Sub 39 39 38; Mul 47 54 47; Sub 39 39 47; Mul 45 60 45;
  Add 39 39 45; Mul 39 2 39; Sub 19 19 39; Out 0 13 19; Mul 39 0 40; Mul 45 1 49; Sub 39 39 45; Mul 45 26 52;
  Add 39 39 45; Mul 45 57 50; Add 39 39 45; Mul 45 60 58; Add 39 39 45; Mul 45 54 56; Add 39 39 45; Mul 39 3 39;
  Mul 50 26 50; Mul 49 0 49; Mul 40 1 40; Add 49 49 40; Mul 52 57 52; Add 49 49 52; Sub 50 50 49; Mul 58 54 58;
  Sub 50 50 58; Mul 56 60 56; Add 50 50 56; Mul 50 2 50; Sub 39 39 50; Out 0 14 39; Out 0 15 43; Out 0 16 41;
  Out 0 17 19; Mul 19 0 2; Mul 41 1 3; Sub 19 19 41; Mul 41 19 6; Mul 1 1 2; Mul 0 0 3; Add 1 1 0; Mul 0 1 59;
  Sub 41 41 0; Mul 0 26 3; Mul 43 57 2; Add 0 0 43; Mul 43 0 8; Add 41 41 43; Mul 57 57 3; Mul 26 26 2;
  Sub 57 57 26; Mul 26 57 15; Sub 41 41 26; Mul 26 60 3; Mul 43 54 2; Add 26 26 43; Mul 43 26 30; Add 41 41 43;
  Mul 54 54 3; Mul 60 60 2; Sub 54 54 60; Mul 60 54 29; Sub 41 41 60; Mul 41 41 4; Mul 6 1 6; Mul 59 19 59;
  Add 6 6 59; Mul 8 57 8; Add 6 6 8].
Definition casadi_f0_4 : list instruction := [
  Mul 15 0 15; Add 6 6 15; Mul 30 54 30; Add 6 6 30; Mul 29 26 29; Add 6 6 29; Mul 6 6 5; Add 41 41 6;
  Neg 41 41; Out 0 18 41; Mul 41 1 46; Mul 6 57 48; Add 41 41 6; Mul 6 54 55; Add 41 41 6; Mul 41 5 41;
  Mul 46 19 46; Mul 48 0 48; Add 46 46 48; Mul 55 26 55; Add 46 46 55; Mul 46 4 46; Add 41 41 46; Neg 41 41;
  Out 0 19 41; Out 0 20 53; Out 0 21 51; Out 0 22 39; Out 0 23 41; Mul 19 19 5; Mul 1 1 4; Sub 19 19 1;
  Mul 13 19 13; Mul 0 0 5; Mul 57 57 4; Sub 0 0 57; Mul 57 0 14; Add 13 13 57; Mul 57 31 17; Sub 13 13 57;
  Mul 26 26 5; Mul 54 54 4; Sub 26 26 54; Mul 54 26 27; Add 13 13 54; Mul 54 32 28; Add 13 13 54; Mul 13 13 12;
  Mul 19 19 16; Mul 31 31 14; Add 19 19 31; Mul 0 0 17; Add 19 19 0; Mul 32 32 27; Sub 19 19 32; Mul 26 26 28;
  Add 19 19 26; Mul 19 19 11; Add 13 13 19; Neg 13 13; Out 0 24 13].
Definition casadi_f0 : casadi_function := {| f_locals := casadi_f0_locals; f_code :=
  casadi_f0_1 ++ casadi_f0_2 ++ casadi_f0_3 ++ casadi_f0_4 |}.
Definition willow_mpc_cost_y_e_hess : casadi_function * casadi_interface := (casadi_f0, {|
  f_name_in := ["i0"; "i1"; "i2"; "i3"; "i4"; "i5"]; f_name_out := ["o0"]; f_sparsity_in := [casadi_s0; casadi_s1; casadi_s1; casadi_s2; casadi_s3; casadi_s3]; f_sparsity_out := [casadi_s4];
  f_n_in := 6; f_n_out := 1; f_work := (6, 1, 0, 0)%nat |}).
End MpcCostYEHess.
Export MpcCostYEHess.

(** ** Calls *)

(** A step of the horizon, or its last state, which has no torques. *)
Inductive stage := Path | Last.
Definition nu (s : stage) : nat := match s with Path => 6 | Last => 0 end.
Definition ny (s : stage) : nat := match s with Path => 15 | Last => 9 end.
Definition cost_y (s : stage) := match s with Path => willow_mpc_cost_y_fun | Last => willow_mpc_cost_y_e_fun end.
Definition cost_y_jac (s : stage) := match s with Path => willow_mpc_cost_y_fun_jac_ut_xt | Last => willow_mpc_cost_y_e_fun_jac_ut_xt end.
Definition cost_y_hess (s : stage) := match s with Path => willow_mpc_cost_y_hess | Last => willow_mpc_cost_y_e_hess end.

(** The solver's variables are the torques, then the state. *)
Definition torques_of {F} (s : stage) (w : list F) : list F := take (nu s) w.
Definition state_of {F} (s : stage) (w : list F) : list F := drop (nu s) w.

Section calls.
Context {F : Type} {O : Ops F} (s : stage) (w : list F).

Definition call_y (y_out : list F) : option (list (option (list F))) :=
  call_casadi (f_code (cost_y s).1) [Some (state_of s w); Some (torques_of s w); Some []; Some []; Some []] [Some y_out].
Definition call_y_jac (y_out jac_out : list F) : option (list (option (list F))) :=
  call_casadi (f_code (cost_y_jac s).1) [Some (state_of s w); Some (torques_of s w); Some []; Some []; Some []] [Some y_out; Some jac_out; Some []].
Definition call_y_hess (lambda hess_out : list F) : option (list (option (list F))) :=
  call_casadi (f_code (cost_y_hess s).1) [Some (state_of s w); Some (torques_of s w); Some []; Some lambda; Some []; Some []] [Some hess_out].
End calls.

(** ** Sparse arrays

    The shape of one: its rows and columns, the offsets of the columns in the
    array, and the row of each element of the array. *)

Definition stored (shape : list Z) (r c : nat) : option nat :=
  let offsets := drop 2 shape in
  let offset c := Z.to_nat (nth c offsets 0) in
  let columns := Z.to_nat (nth 1 shape 0) in
  List.find (fun k => Z.of_nat r =? nth (columns + 1 + k)%nat offsets (-1)) (seq (offset c) (offset (S c) - offset c)%nat).
(** The element (r, c), zero where none is stored. *)
Definition dense {A} (zero : A) (shape : list Z) (nz : list A) (r c : nat) : A :=
  match stored shape r c with Some k => nth k nz zero | None => zero end.

Definition jac_shape (s : stage) : list Z := nth 1 (f_sparsity_out (cost_y_jac s).2) [].
Definition hess_shape (s : stage) : list Z := nth 0 (f_sparsity_out (cost_y_hess s).2) [].
Definition jac_size (s : stage) : nat := match s with Path => 26 | Last => 20 end.

(** ** Symbolic arguments *)

(** The variable [k] of the solver, when [r] varies. *)
Definition other (s : stage) (k : nat) : nat := if (k <? nu s)%nat then (6 + k)%nat else (k - nu s - 6)%nat.
Definition symbolic_variable (s : stage) (r k : nat) : symbolic :=
  if ((nu s <=? k) && (k <? nu s + 6))%nat then Angle (k - nu s)%nat
  else Known (p_other 6 (other s k)) (if (k =? r)%nat then p_one else p_zero).
Definition varied_joint (s : stage) (r : nat) : nat := if (nu s <=? r)%nat then (r - nu s)%nat else 6%nat.
Definition symbolic_y (s : stage) (r : nat) : list (option (list symbolic)) :=
  [Some (map (symbolic_variable s r) (seq (nu s) 12)); Some (map (symbolic_variable s r) (seq 0 (nu s))); Some []; Some []; Some []].
Definition symbolic_lambda (s : stage) : list symbolic := map (fun k => Known (p_other 6 (6 + nu s + k)%nat) p_zero) (seq 0 (ny s)).
Definition symbolic_hess (s : stage) (r : nat) : list (option (list symbolic)) :=
  [Some (map (symbolic_variable s r) (seq (nu s) 12)); Some (map (symbolic_variable s r) (seq 0 (nu s))); Some [];
   Some (symbolic_lambda s); Some []; Some []].

(** ** What the symbolic arguments stand for *)

Lemma nth_insert_derives (w : list R) r k t : (k < length w)%nat ->
  derivable_pt_lim (fun t => nth k (<[r := t]> w) 0%R) t (if (k =? r)%nat then 1 else 0)%R.
Proof.
  intros Hk. destruct (Nat.eqb_spec k r) as [->|Hne].
  - apply (derivable_pt_lim_ext (fun t => t)); [|apply derivable_pt_lim_id]. intros z.
    symmetry. apply nth_lookup_Some. by apply list_lookup_insert_eq.
  - apply (derivable_pt_lim_ext (fun _ => nth k w 0%R)); [|apply derivable_pt_lim_const]. intros z.
    by rewrite !nth_lookup, list_lookup_insert_ne.
Qed.
Lemma map_nth_seq (l : list R) n m : (n + m <= length l)%nat -> map (fun k => nth k l 0%R) (seq n m) = take m (drop n l).
Proof.
  intros Hl. apply list_eq. intros i. rewrite list_lookup_fmap. destruct (decide (i < m)%nat) as [Hi|Hi].
  - rewrite lookup_seq_lt, lookup_take_lt, lookup_drop by done. cbn.
    destruct (lookup_lt_is_Some_2 l (n + i)) as [x Hx]; [lia|]. by rewrite (nth_lookup_Some _ _ _ _ Hx).
  - rewrite lookup_seq_ge by lia. by rewrite lookup_take_ge by lia.
Qed.

Section variation.
Context (s : stage) (w lambda : list R) (r : nat) (Hw : length w = (nu s + 12)%nat) (Hlambda : length lambda = ny s).

Definition angles (w : list R) : list R := take 6 (state_of s w).
Definition others (t : R) : list R := drop 6 (state_of s (<[r := t]> w)) ++ torques_of s (<[r := t]> w) ++ lambda.

Lemma length_angles : length (angles w) = 6%nat.
Proof. unfold angles, state_of. rewrite length_take, length_drop, Hw. lia. Qed.
Lemma angles_vary t : <[varied_joint s r := t]> (angles w) = angles (<[r := t]> w).
Proof.
  pose proof length_angles as Hl. unfold varied_joint, angles, state_of in *. destruct (Nat.leb_spec (nu s) r).
  - rewrite drop_insert_ge, take_insert by done. destruct (decide _); [done|]. apply list_insert_ge. lia.
  - rewrite drop_insert_lt by done. apply list_insert_ge. lia.
Qed.

Lemma other_val t k x : others t !! k = Some x ->
  p_val (at_angle (varied_joint s r) (angles w) others t) (p_other 6 k) = x.
Proof.
  intros Hk. pose proof (vars_other (<[varied_joint s r := t]> (angles w)) _ _ _ Hk) as Hx.
  by rewrite length_insert, length_angles in Hx.
Qed.

Lemma variable_stands k : (k < nu s + 12)%nat ->
  stands_for (varied_joint s r) (angles w) others (symbolic_variable s r k) (fun t => nth k (<[r := t]> w) 0%R).
Proof.
  intros Hk. assert (forall t, (<[r := t]> w) !! k = Some (nth k (<[r := t]> w) 0%R)) as Hnth.
  { intros t. destruct (lookup_lt_is_Some_2 (<[r := t]> w) k) as [x Hx]; [rewrite length_insert; lia|].
    by rewrite (nth_lookup_Some _ _ _ _ Hx). }
  unfold symbolic_variable. destruct ((nu s <=? k) && (k <? nu s + 6))%nat eqn:Ha.
  - apply andb_true_iff in Ha as [H1%Nat.leb_le H2%Nat.ltb_lt]. intros t. rewrite angles_vary. unfold angles, state_of.
    rewrite lookup_take_lt, lookup_drop by lia. rewrite <- Hnth. f_equal. lia.
  - apply andb_false_iff in Ha. rewrite Nat.leb_gt, Nat.ltb_ge in Ha. intros t. split.
    + symmetry. apply other_val. unfold others, other, state_of, torques_of. rewrite <- Hnth. destruct (Nat.ltb_spec k (nu s)).
      * rewrite lookup_app_r by (rewrite !length_drop, length_insert; lia). rewrite !length_drop, length_insert, Hw.
        rewrite lookup_app_l by (rewrite length_take, length_insert; lia). rewrite lookup_take_lt by lia. f_equal. lia.
      * rewrite lookup_app_l by (rewrite !length_drop, length_insert; lia). rewrite !lookup_drop. f_equal. lia.
    + replace (p_val _ _) with (if (k =? r)%nat then 1 else 0)%R by (destruct (k =? r)%nat; [by rewrite p_one_val|by rewrite p_zero_val]).
      apply nth_insert_derives. lia.
Qed.
Lemma lambda_stands k : (k < ny s)%nat ->
  stands_for (varied_joint s r) (angles w) others (Known (p_other 6 (6 + nu s + k)) p_zero) (fun _ => nth k lambda 0%R).
Proof.
  intros Hk t. rewrite p_zero_val. split; [|apply derivable_pt_lim_const]. symmetry. apply other_val.
  unfold others, state_of, torques_of. rewrite !lookup_app_r by (rewrite ?length_take, ?length_drop, length_insert; lia).
  rewrite length_take, !length_drop, length_insert, Hw.
  destruct (lookup_lt_is_Some_2 lambda k) as [x Hx]; [lia|]. rewrite (nth_lookup_Some _ _ _ _ Hx), <- Hx. f_equal. lia.
Qed.

(** The arguments of the calls, and their values. *)
Definition varied (n m : nat) : option (list (R -> R)) := Some (map (fun k t => nth k (<[r := t]> w) 0%R) (seq n m)).
Definition y_arguments : list (option (list (R -> R))) := [varied (nu s) 12; varied 0 (nu s); Some []; Some []; Some []].
Definition hess_arguments : list (option (list (R -> R))) :=
  [varied (nu s) 12; varied 0 (nu s); Some []; Some (map (fun k _ => nth k lambda 0%R) (seq 0 (ny s))); Some []; Some []].

Lemma varied_stands n m : (n + m <= nu s + 12)%nat ->
  option_Forall2 (Forall2 (stands_for (varied_joint s r) (angles w) others)) (Some (map (symbolic_variable s r) (seq n m))) (varied n m).
Proof.
  intros Hn. unfold varied. constructor. apply Forall2_fmap, Forall_Forall2_diag, List.Forall_forall.
  intros k Hk%in_seq. apply variable_stands. lia.
Qed.
Lemma y_arguments_stand : arrays_related (stands_for (varied_joint s r) (angles w) others) (symbolic_y s r) y_arguments.
Proof. repeat (constructor; [(apply varied_stands; lia) || (constructor; constructor)|]). constructor. Qed.
Lemma hess_arguments_stand : arrays_related (stands_for (varied_joint s r) (angles w) others) (symbolic_hess s r) hess_arguments.
Proof.
  do 3 (constructor; [(apply varied_stands; lia) || (constructor; constructor)|]).
  constructor; [constructor; apply Forall2_fmap, Forall_Forall2_diag, List.Forall_forall; intros k Hk%in_seq; apply lambda_stands; lia|].
  repeat (constructor; [constructor; constructor|]). constructor.
Qed.

Lemma varied_at t n m : (n + m <= nu s + 12)%nat -> map (fun f => f t) <$> varied n m = Some (take m (drop n (<[r := t]> w))).
Proof. intros Hn. unfold varied. cbn. rewrite map_map, <- map_nth_seq; [done|]. rewrite length_insert. lia. Qed.
Lemma y_arguments_at t : arrays_at t y_arguments
  = [Some (state_of s (<[r := t]> w)); Some (torques_of s (<[r := t]> w)); Some []; Some []; Some []].
Proof.
  unfold arrays_at, y_arguments. cbn [map]. rewrite !varied_at by lia.
  unfold state_of, torques_of. rewrite drop_0, (take_ge (drop _ _)) by (rewrite length_drop, length_insert; lia). done.
Qed.
Lemma hess_arguments_at t : arrays_at t hess_arguments
  = [Some (state_of s (<[r := t]> w)); Some (torques_of s (<[r := t]> w)); Some []; Some lambda; Some []; Some []].
Proof.
  unfold arrays_at, hess_arguments. cbn [map]. rewrite !varied_at by lia.
  unfold state_of, torques_of. rewrite drop_0, (take_ge (drop _ _)) by (rewrite length_drop, length_insert; lia).
  do 3 f_equal. cbn. f_equal. f_equal. rewrite map_map, map_nth_seq, drop_0, take_ge by (rewrite Hlambda; lia). done.
Qed.
End variation.

(** ** The Jacobian *)

Definition p_same (p p' : poly) : bool := p_is_zero 6 (p_sub p p').
Definition mpc_ops : Ops R := exact_ops decimal_double.
Definition element (s : list Z) (l : list (poly * poly)) (r c : nat) : poly * poly := dense (p_zero, p_zero) s l r c.

Definition jacobian_checked (s : stage) (r : nat) : bool :=
  let j := varied_joint s r in
  match symbolic_results decimal_double j (cost_y s).1 (symbolic_y s r) [ny s],
        symbolic_results decimal_double j (cost_y_jac s).1 (symbolic_y s r) [ny s; jac_size s; O] with
  | Some [y], Some [y'; J; []] => (length y =? ny s)%nat && (length y' =? ny s)%nat &&
      all_below (ny s) (fun k => p_same (entry y k).1 (entry y' k).1 && p_same (entry y k).2 (element (jac_shape s) J r k).1)
  | _, _ => false
  end.
Lemma cost_jacobians_checked s : all_below (nu s + 12) (jacobian_checked s) = true.
Proof. destruct s; by vm_compute. Qed.

Lemma stands_dense j q w shape l (fs : list (R -> R)) r c t : Forall2 (fun pd => stands_for j q w (Known pd.1 pd.2)) l fs ->
  dense 0%R shape (map (fun g => g t) fs) r c = p_val (at_angle j q w t) (element shape l r c).1 /\
  derivable_pt_lim (fun t => dense 0%R shape (map (fun g => g t) fs) r c) t (p_val (at_angle j q w t) (element shape l r c).2).
Proof.
  intros Hl. unfold element, dense. destruct (stored shape r c) as [k|]; [by apply stands_entry|].
  cbn. rewrite p_zero_val. split; [done|apply derivable_pt_lim_const].
Qed.

Lemma equal_at j q w p p' t : length q = 6%nat -> p_same p p' = true -> p_val (at_angle j q w t) p = p_val (at_angle j q w t) p'.
Proof. intros Hq. apply p_equal6. by rewrite length_insert. Qed.

(** C7: the Jacobian that the solver is given is the derivative of the cost: for every
    stage of the horizon, every element [k] of the cost and every variable [r]
    (torque, angle or velocity), the element (r, k) of the sparse array that
    [willow_mpc_cost_y_fun_jac_ut_xt] leaves, zero where it stores none, is the
    derivative of what [willow_mpc_cost_y_fun] leaves; and both leave the same
    cost. *)
Theorem cost_jacobian_is_derivative s w r k y_out jac_out :
  length w = (nu s + 12)%nat -> (r < nu s + 12)%nat -> (k < ny s)%nat -> length y_out = ny s -> length jac_out = jac_size s ->
  exists Y J : R -> list R,
    (forall t, call_y (O:=mpc_ops) s (<[r := t]> w) y_out = Some [Some (Y t)]) /\
    (forall t, call_y_jac (O:=mpc_ops) s (<[r := t]> w) y_out jac_out = Some [Some (Y t); Some (J t); Some []]) /\
    forall t, derivable_pt_lim (fun t => nth k (Y t) 0%R) t (dense 0%R (jac_shape s) (J t) r k).
Proof.
  intros Hw Hr Hk Hy Hjac. pose proof (all_below_spec _ _ r (cost_jacobians_checked s) Hr) as Hc. unfold jacobian_checked in Hc.
  set (lambda := replicate (ny s) 0%R). assert (length lambda = ny s) as Hl by apply length_replicate.
  pose proof (length_angles s w lambda Hw Hl) as Hq.
  destruct (symbolic_results _ _ (cost_y s).1 _ _) as [[|y []]|] eqn:Hsy; try done.
  destruct (symbolic_results _ _ (cost_y_jac s).1 _ _) as [[|y' [|J [|[] []]]]|] eqn:HsJ; try done.
  rewrite !andb_true_iff, !Nat.eqb_eq in Hc. destruct Hc as [[Hly Hly'] Hc].
  destruct (symbolic_results_sound _ _ _ _ _ _ _ _ _ [y_out] Hsy (y_arguments_stand s w lambda r Hw Hl)) as (fy & Hcy & Hry); [cbn; by rewrite Hy|].
  destruct (symbolic_results_sound _ _ _ _ _ _ _ _ _ [y_out; jac_out; []] HsJ (y_arguments_stand s w lambda r Hw Hl)) as (fJ & HcJ & HrJ);
    [cbn; by rewrite Hy, Hjac|].
  inversion Hry as [|? Y ? ? HY Hn]; subst. inversion Hn; subst. clear Hn.
  inversion HrJ as [|? Y' ? ? HY' Hn]; subst. inversion Hn as [|? Jf ? ? HJ Hn']; subst. inversion Hn' as [|? ? ? ? H0 Hn'']; subst.
  inversion Hn''; subst. inversion H0; subst.
  assert (forall i t, (i < ny s)%nat -> nth i (map (fun g => g t) Y) 0%R = nth i (map (fun g => g t) Y') 0%R) as Heq.
  { intros i t Hi. pose proof (all_below_spec _ _ i Hc Hi) as He. apply andb_true_iff in He as [He _].
    rewrite (proj1 (stands_entry _ _ _ _ _ i t HY)), (proj1 (stands_entry _ _ _ _ _ i t HY')). by apply equal_at. }
  exists (fun t => map (fun g => g t) Y), (fun t => map (fun g => g t) Jf). split; [|split].
  - intros t. specialize (Hcy t). by rewrite (y_arguments_at s w lambda r Hw Hl t) in Hcy.
  - intros t. specialize (HcJ t). rewrite (y_arguments_at s w lambda r Hw Hl t) in HcJ. etransitivity; [exact HcJ|]. cbn. do 3 f_equal.
    apply (nth_ext _ _ 0%R 0%R).
    + rewrite !length_map. rewrite <- (Forall2_length HY), <- (Forall2_length HY'). lia.
    + intros i. rewrite length_map, <- (Forall2_length HY'), Hly'. intros Hi. by rewrite Heq.
  - intros t. rewrite (proj1 (stands_dense _ _ _ _ _ _ r k t HJ)).
    pose proof (all_below_spec _ _ k Hc Hk) as He. apply andb_true_iff in He as [_ He].
    rewrite <- (equal_at _ _ _ _ _ t Hq He). apply (stands_entry _ _ _ _ _ k t HY).
Qed.

(** ** The second derivatives *)

Definition sum_below (n : nat) (f : nat -> R) : R := fold_right (fun k a => (f k + a)%R) 0%R (seq 0 n).
Definition p_weighted (s : stage) (f : nat -> poly) : poly :=
  fold_right (fun k p => p_add (p_mul (p_other 6 (6 + nu s + k)%nat) (f k)) p) p_zero (seq 0 (ny s)).
Definition hess_size (s : stage) : nat := 25.

Definition hessian_checked (s : stage) (c : nat) : bool :=
  match symbolic_results decimal_double (varied_joint s c) (cost_y_jac s).1 (symbolic_y s c) [ny s; jac_size s; O],
        symbolic_results decimal_double (varied_joint s c) (cost_y_hess s).1 (symbolic_hess s c) [hess_size s] with
  | Some [_; J; []], Some [H] => all_below (nu s + 12) (fun r =>
      p_same (p_weighted s (fun k => (element (jac_shape s) J r k).2)) (element (hess_shape s) H r c).1)
  | _, _ => false
  end.
Lemma hessians_checked s : all_below (nu s + 12) (hessian_checked s) = true.
Proof. destruct s; by vm_compute. Qed.

Lemma weighted_derives s w lambda r (Hw : length w = (nu s + 12)%nat) (Hl : length lambda = ny s) (f : nat -> R -> R) p t :
  (forall k, derivable_pt_lim (f k) t (p_val (at_angle (varied_joint s r) (angles s w) (others s w lambda r) t) (p k))) ->
  derivable_pt_lim (fun t => sum_below (ny s) (fun k => nth k lambda 0 * f k t)%R) t
    (p_val (at_angle (varied_joint s r) (angles s w) (others s w lambda r) t) (p_weighted s p)).
Proof.
  intros Hf. unfold sum_below, p_weighted.
  assert (Forall (fun k => (k < ny s)%nat) (seq 0 (ny s))) as Hks by (apply List.Forall_forall; intros k Hk%in_seq; lia).
  induction Hks as [|k ks Hk _ IH]; cbn [fold_right]; [rewrite p_zero_val; apply derivable_pt_lim_const|].
  rewrite p_add_val, p_mul_val. apply (derivable_pt_lim_plus (fun t => nth k lambda 0 * f k t)%R); [|done].
  rewrite <- (proj1 (lambda_stands s w lambda r Hw Hl k Hk t)). by apply derivable_pt_lim_scal.
Qed.

(** C17: the second derivatives that the solver is given are those of the cost: for all
    variables [r] and [c], the element (r, c) of what [willow_mpc_cost_y_hess]
    leaves is the derivative along [c] of row [r] of the Jacobian, its elements
    weighted by [lambda]. *)
Theorem cost_hessian_is_derivative s w lambda r c y_out jac_out hess_out :
  length w = (nu s + 12)%nat -> length lambda = ny s -> (r < nu s + 12)%nat -> (c < nu s + 12)%nat ->
  length y_out = ny s -> length jac_out = jac_size s -> length hess_out = hess_size s ->
  exists J H : R -> list R,
    (forall t, exists y, call_y_jac (O:=mpc_ops) s (<[c := t]> w) y_out jac_out = Some [Some y; Some (J t); Some []]) /\
    (forall t, call_y_hess (O:=mpc_ops) s (<[c := t]> w) lambda hess_out = Some [Some (H t)]) /\
    forall t, derivable_pt_lim (fun t => sum_below (ny s) (fun k => nth k lambda 0 * dense 0 (jac_shape s) (J t) r k)%R) t
      (dense 0%R (hess_shape s) (H t) r c).
Proof.
  intros Hw Hl Hr Hc Hy Hjac Hhess. pose proof (all_below_spec _ _ c (hessians_checked s) Hc) as Hk. unfold hessian_checked in Hk.
  pose proof (length_angles s w lambda Hw Hl) as Hq.
  destruct (symbolic_results _ _ (cost_y_jac s).1 _ _) as [[|y [|J [|[] []]]]|] eqn:HsJ; try done.
  destruct (symbolic_results _ _ (cost_y_hess s).1 _ _) as [[|H []]|] eqn:HsH; try done.
  destruct (symbolic_results_sound _ _ _ _ _ _ _ _ _ [y_out; jac_out; []] HsJ (y_arguments_stand s w lambda c Hw Hl)) as (fJ & HcJ & HrJ);
    [cbn; by rewrite Hy, Hjac|].
  destruct (symbolic_results_sound _ _ _ _ _ _ _ _ _ [hess_out] HsH (hess_arguments_stand s w lambda c Hw Hl)) as (fH & HcH & HrH);
    [cbn; by rewrite Hhess|].
  inversion HrH as [|? Hf ? ? HH Hn]; subst. inversion Hn; subst. clear Hn.
  inversion HrJ as [|? Y ? ? HY Hn]; subst. inversion Hn as [|? Jf ? ? HJ Hn']; subst. inversion Hn' as [|? ? ? ? H0 Hn'']; subst.
  inversion Hn''; subst. inversion H0; subst.
  exists (fun t => map (fun g => g t) Jf), (fun t => map (fun g => g t) Hf). split; [|split].
  - intros t. specialize (HcJ t). rewrite (y_arguments_at s w lambda c Hw Hl t) in HcJ. eexists. exact HcJ.
  - intros t. specialize (HcH t). by rewrite (hess_arguments_at s w lambda c Hw Hl t) in HcH.
  - intros t. rewrite (proj1 (stands_dense _ _ _ _ _ _ r c t HH)), <- (equal_at _ _ _ _ _ t Hq (all_below_spec _ _ r Hk Hr)).
    apply weighted_derives; [done..|]. intros k. by apply stands_dense.
Qed.

(** ** Witnesses: a step of the horizon at rest *)

Definition rest (n : nat) : list R := replicate n 0%R.

Lemma cost_jacobian_is_derivative_witness : exists Y J : R -> list R,
  (forall t, call_y (O:=mpc_ops) Path (<[7%nat := t]> (rest 18)) (rest 15) = Some [Some (Y t)]) /\
  (forall t, call_y_jac (O:=mpc_ops) Path (<[7%nat := t]> (rest 18)) (rest 15) (rest 26) = Some [Some (Y t); Some (J t); Some []]) /\
  forall t, derivable_pt_lim (fun t => nth 2 (Y t) 0%R) t (dense 0%R (jac_shape Path) (J t) 7 2).
Proof.
  exact (cost_jacobian_is_derivative Path (rest 18) 7 2 (rest 15) (rest 26) eq_refl
    ltac:(cbn; lia) ltac:(cbn; lia) eq_refl eq_refl).
Defined.

Lemma cost_hessian_is_derivative_witness : exists J H : R -> list R,
  (forall t, exists y, call_y_jac (O:=mpc_ops) Path (<[8%nat := t]> (rest 18)) (rest 15) (rest 26) = Some [Some y; Some (J t); Some []]) /\
  (forall t, call_y_hess (O:=mpc_ops) Path (<[8%nat := t]> (rest 18)) (replicate 15 1%R) (rest 25) = Some [Some (H t)]) /\
  forall t, derivable_pt_lim (fun t => sum_below 15 (fun k => nth k (replicate 15 1) 0 * dense 0 (jac_shape Path) (J t) 7 k)%R) t
    (dense 0%R (hess_shape Path) (H t) 7 8).
Proof.
  exact (cost_hessian_is_derivative Path (rest 18) (replicate 15 1%R) 7 8 (rest 15) (rest 26) (rest 25)
    eq_refl eq_refl ltac:(cbn; lia) ltac:(cbn; lia) eq_refl eq_refl eq_refl).
Defined.
