(* ===== verification/PartialRuns.v ===== *)
(** * Partial runs

    Runs in which a division by zero or the square root of a negative number has
    no value, and two ways to know their results: as small polynomials of the
    joint angles, where what becomes too large is given up, and as intervals. *)

From Stdlib Require Import SpecFloat Reals Lra setoid_ring.Ring_polynom Lia.
From stdpp Require Import nmap strings.
From S2P Require Import Prelude Arith Casadi Polynomials.

(** ** Arithmetic with undefined results *)

Definition lift1 (f : R -> R) (x : option R) : option R := f <$> x.
Definition lift2 (f : R -> R -> R) (x y : option R) : option R := a ← x; f a <$> y.

Definition partial_ops (literal : Z -> nat -> spec_float) : Ops (option R) := {|
  lit n k := Some (real_of (literal n k));
  op_add := lift2 Rplus;
  op_sub := lift2 Rminus;
  op_mul := lift2 Rmult;
  op_div x y := a ← x; b ← y; if Req_dec_T b 0 then None else Some (a / b)%R;
  op_neg := lift1 Ropp;
  op_sin := lift1 sin;
  op_cos := lift1 cos;
  op_sqrt x := a ← x; if Rle_dec 0 a then Some (R_sqrt.sqrt a) else None
|}.

(** ** Small polynomials *)

Inductive term := Unknown | Angle (i : nat) | Known (p : poly).

Fixpoint p_size (p : poly) : nat :=
  match p with Pc _ => 1 | Pinj _ p => p_size p | PX p _ q => (p_size p + p_size q)%nat end.

(** A polynomial, reduced, unless it has too many terms; products that would have
    too many are not computed. *)
Definition small (cap : nat) (p : poly) : term :=
  let p := p_reduce 6 p in if (p_size p <=? cap)%nat then Known p else Unknown.
Definition zero_term (t : term) : bool := match t with Known p => Peq dyad_eqb p p_zero | _ => false end.

Definition term_ops (cap : nat) (literal : Z -> nat -> spec_float) : Ops term := {|
  lit n k := Known (p_const (dyad_of (literal n k)));
  op_add x y := match x, y with
    | Known p, Known p' => small cap (p_add p p')
    | _, _ => Unknown end;
  op_sub x y := match x, y with
    | Known p, Known p' => small cap (p_sub p p')
    | _, _ => Unknown end;
  op_mul x y := match x, y with
    | Known p, Known p' => if (p_size p * p_size p' <=? 2 * cap)%nat then small cap (p_mul p p') else Unknown
    | _, _ => if zero_term x || zero_term y then Known p_zero else Unknown end;
  op_div x y := if zero_term x then Known p_zero else Unknown;
  op_neg x := match x with Known p => Known (p_opp p) | _ => Unknown end;
  op_sin x := match x with Angle i => Known (p_sin i) | _ => Unknown end;
  op_cos x := match x with Angle i => Known (p_cos i) | _ => Unknown end;
  op_sqrt x := Unknown
|}.

Section terms.
Context (q v : list R) (Hq : length q = 6%nat).

(** What a term says of the number that it stands for, if that is defined. *)
Definition term_of (t : term) (x : option R) : Prop :=
  forall r, x = Some r ->
  match t with
  | Unknown => True
  | Angle i => q !! i = Some r
  | Known p => r = p_val (vars q v) p
  end.

Lemma reduce_val p : p_val (vars q v) (p_reduce 6 p) = p_val (vars q v) p.
Proof. rewrite <- Hq. symmetry. apply p_reduce_val. Qed.

Lemma small_of cap p r : r = p_val (vars q v) p -> term_of (small cap p) (Some r).
Proof.
  intros Hr r' [= <-]. unfold small. destruct (p_size (p_reduce 6 p) <=? cap)%nat; [|done]. by rewrite reduce_val.
Qed.

Lemma zero_term_of t r : zero_term t = true -> term_of t (Some r) -> r = 0%R.
Proof.
  destruct t as [| |p]; try done. intros Hz Ht. rewrite (Ht r eq_refl). by apply p_peq_zero.
Qed.

Lemma term_related cap literal : ops_related (OA:=term_ops cap literal) (OB:=partial_ops literal) term_of.
Proof.
  split; cbn.
  - intros n k r [= <-]. by rewrite p_const_val, dyad_of_val.
  - intros [| |p] [a|] [| |p'] [b|] Ha Hb; try done. apply small_of.
    by rewrite p_add_val, <- (Ha a eq_refl), <- (Hb b eq_refl).
  - intros [| |p] [a|] [| |p'] [b|] Ha Hb; try done. apply small_of.
    by rewrite p_sub_val, <- (Ha a eq_refl), <- (Hb b eq_refl).
  - intros x [a|] y [b|] Ha Hb; try done.
    assert (zero_term x || zero_term y = true -> term_of (Known p_zero) (Some (a * b)%R)) as Hz.
    { intros [Hx|Hy]%orb_true_iff r [= <-]; rewrite p_zero_val;
        [rewrite (zero_term_of x a Hx Ha)|rewrite (zero_term_of y b Hy Hb)]; ring. }
    destruct x as [| |p], y as [| |p'];
      try (match goal with |- context [if ?c then _ else _] => destruct c end; [by apply Hz|done]).
    destruct (_ <=? _)%nat; [|done]. apply small_of. by rewrite p_mul_val, <- (Ha a eq_refl), <- (Hb b eq_refl).
  - intros x [a|] y [b|] Ha Hb; try done. cbn. destruct (Req_dec_T b 0); [done|]. intros r [= <-].
    destruct (zero_term x) eqn:Hx; [|done]. rewrite p_zero_val, (zero_term_of x a Hx Ha). apply Rdiv_0_l.
  - intros [| |p] [a|] Ha; try done. intros r [= <-]. by rewrite p_opp_val, <- (Ha a eq_refl).
  - intros [| |p] [a|] Ha; try done. intros r [= <-]. symmetry. apply vars_sin, Ha, eq_refl.
  - intros [| |p] [a|] Ha; try done. intros r [= <-]. symmetry. apply vars_cos, Ha, eq_refl.
  - done.
Qed.
End terms.

(** A defined result is that of the exact run. *)
Definition exact_of (o : option R) (x : R) : Prop := forall r, o = Some r -> r = x.
Lemma exact_related literal : ops_related (OA:=partial_ops literal) (OB:=exact_ops literal) exact_of.
Proof.
  split; unfold exact_of; cbn.
  - intros n k r [= <-]. done.
  - intros [a|] x [b|] y Ha Hb r [= <-]. by rewrite (Ha a eq_refl), (Hb b eq_refl).
  - intros [a|] x [b|] y Ha Hb r [= <-]. by rewrite (Ha a eq_refl), (Hb b eq_refl).
  - intros [a|] x [b|] y Ha Hb r [= <-]. by rewrite (Ha a eq_refl), (Hb b eq_refl).
  - intros [a|] x [b|] y Ha Hb r Hr; try done. cbn in Hr. destruct (Req_dec_T b 0); [done|]. injection Hr as <-.
    by rewrite (Ha a eq_refl), (Hb b eq_refl).
  - intros [a|] x Ha r [= <-]. by rewrite (Ha a eq_refl).
  - intros [a|] x Ha r [= <-]. by rewrite (Ha a eq_refl).
  - intros [a|] x Ha r [= <-]. by rewrite (Ha a eq_refl).
  - intros [a|] x Ha r Hr; try done. cbn in Hr. destruct (Rle_dec 0 a); [|done]. injection Hr as <-. by rewrite (Ha a eq_refl).
Qed.

(** ** Interval runs

    Enclosures of the numbers of an exact run by multiples of 2^-80, which also
    show that its divisions and square roots are defined. *)

#[local] Open Scope Z_scope.

(** *** Intervals *)

Inductive interval := Any | Between (lo hi : Z).

Definition unit : Z := 2 ^ 80.
Definition floor_div (a b : Z) : Z := a / b.
Definition ceil_div (a b : Z) : Z := - (- a / b).

(** A quotient by a positive interval, and the other operations. *)
Definition interval_div (a b c d : Z) : interval :=
  if 0 <? c
  then Between (floor_div (a * unit) (if 0 <=? a then d else c)) (ceil_div (b * unit) (if 0 <=? b then c else d))
  else Any.
Definition min4 (a b c d : Z) : Z := Z.min (Z.min a b) (Z.min c d).
Definition max4 (a b c d : Z) : Z := Z.max (Z.max a b) (Z.max c d).

Definition interval_ops (literal : Z -> nat -> spec_float) : Ops interval := {|
  lit n k := let d := dyad_of (literal n k) in
    Between (floor_div (d.1 * unit) (pow2 d.2)) (ceil_div (d.1 * unit) (pow2 d.2));
  op_add x y := match x, y with Between a b, Between c d => Between (a + c) (b + d) | _, _ => Any end;
  op_sub x y := match x, y with Between a b, Between c d => Between (a - d) (b - c) | _, _ => Any end;
  op_mul x y := match x, y with
    | Between a b, Between c d =>
        Between (floor_div (min4 (a * c) (a * d) (b * c) (b * d)) unit) (ceil_div (max4 (a * c) (a * d) (b * c) (b * d)) unit)
    | _, _ => Any end;
  op_div x y := match x, y with Between a b, Between c d => interval_div a b c d | _, _ => Any end;
  op_neg x := match x with Between a b => Between (- b) (- a) | Any => Any end;
  op_sin x := match x with Between 0 0 => Between 0 0 | _ => Any end;
  op_cos x := match x with Between 0 0 => Between unit unit | _ => Any end;
  op_sqrt x := match x with
    | Between a b => if 0 <=? a then Between (Z.sqrt (a * unit)) (Z.sqrt (b * unit) + 1) else Any
    | Any => Any end
|}.

(** The number is defined and lies in the interval. *)
Definition interval_of (t : interval) (x : option R) : Prop :=
  match t with
  | Any => True
  | Between a b => exists r, x = Some r /\ (IZR a <= r * IZR unit <= IZR b)%R
  end.

(** *** Soundness *)

Lemma unit_pos : (0 < IZR unit)%R.
Proof. by apply (IZR_lt 0). Qed.

Lemma floor_div_le a b : 0 < b -> (IZR (floor_div a b) <= IZR a / IZR b)%R.
Proof.
  intros Hb. pose proof (IZR_lt 0 b Hb). apply (Rmult_le_reg_r (IZR b)); [done|].
  unfold Rdiv. rewrite Rmult_assoc, Rinv_l, Rmult_1_r by lra. rewrite <- mult_IZR. apply IZR_le. unfold floor_div. pose proof (Z.mul_div_le a b). lia.
Qed.
Lemma ceil_div_ge a b : 0 < b -> (IZR a / IZR b <= IZR (ceil_div a b))%R.
Proof.
  intros Hb. pose proof (floor_div_le (- a) b Hb) as H. unfold ceil_div. unfold floor_div in H.
  rewrite opp_IZR in *. unfold Rdiv in *. lra.
Qed.

Lemma product_between a b c d x y : (IZR a <= x <= IZR b)%R -> (IZR c <= y <= IZR d)%R ->
  (IZR (min4 (a * c) (a * d) (b * c) (b * d)) <= x * y <= IZR (max4 (a * c) (a * d) (b * c) (b * d)))%R.
Proof.
  intros Hx Hy.
  assert (forall z, z = a * c \/ z = a * d \/ z = b * c \/ z = b * d ->
    (IZR (min4 (a * c) (a * d) (b * c) (b * d)) <= IZR z <= IZR (max4 (a * c) (a * d) (b * c) (b * d)))%R) as H.
  { intros z Hz. unfold min4, max4. split; apply IZR_le; lia. }
  pose proof (H (a * c) ltac:(tauto)) as H1. pose proof (H (a * d) ltac:(tauto)) as H2.
  pose proof (H (b * c) ltac:(tauto)) as H3. pose proof (H (b * d) ltac:(tauto)) as H4. clear H.
  rewrite !mult_IZR in *. destruct (Rle_lt_dec 0 y), (Rle_lt_dec 0 (IZR a)), (Rle_lt_dec 0 (IZR b)); split; nra.
Qed.

Lemma interval_div_of a b c d x y : interval_of (Between a b) (Some x) -> interval_of (Between c d) (Some y) ->
  interval_of (interval_div a b c d) (if Req_dec_T y 0 then None else Some (x / y)%R).
Proof.
  intros (? & [= <-] & Hx) (? & [= <-] & Hy). unfold interval_div. destruct (Z.ltb_spec 0 c) as [Hc|]; [|done].
  pose proof unit_pos as Hu. pose proof (IZR_lt 0 c Hc) as Hc'.
  assert (0 < y)%R as Hy0 by (apply (Rmult_lt_reg_r (IZR unit)); lra).
  assert (0 < d) as Hd by (apply lt_IZR; lra). pose proof (IZR_lt 0 d Hd) as Hd'.
  destruct (Req_dec_T y 0); [lra|]. exists (x / y)%R. split; [done|].
  assert (forall e, (0 < e -> IZR a / e <= IZR a / (y * IZR unit) -> IZR a * IZR unit / e <= x / y * IZR unit)%R) as Hlo.
  { intros e He Ha. apply (Rle_trans _ (IZR a / (y * IZR unit) * IZR unit)); [unfold Rdiv in *; nra|].
    replace (x / y * IZR unit)%R with (x * IZR unit / (y * IZR unit) * IZR unit)%R by (field; lra).
    apply Rmult_le_compat_r; [lra|]. apply Rmult_le_compat_r; [|lra]. left. apply Rinv_0_lt_compat. nra. }
  assert (forall e, (0 < e -> IZR b / (y * IZR unit) <= IZR b / e -> x / y * IZR unit <= IZR b * IZR unit / e)%R) as Hhi.
  { intros e He Hb. apply (Rle_trans _ (IZR b / (y * IZR unit) * IZR unit)); [|unfold Rdiv in *; nra].
    replace (x / y * IZR unit)%R with (x * IZR unit / (y * IZR unit) * IZR unit)%R by (field; lra).
    apply Rmult_le_compat_r; [lra|]. apply Rmult_le_compat_r; [|lra]. left. apply Rinv_0_lt_compat. nra. }
  assert (/ IZR d <= / (y * IZR unit) <= / IZR c)%R as [Hi1 Hi2] by (split; apply Rinv_le_contravar; nra).
  split.
  - etransitivity; [apply floor_div_le; by destruct (0 <=? a)|]. rewrite mult_IZR.
    destruct (Z.leb_spec 0 a) as [Ha|Ha]; [apply IZR_le in Ha|apply IZR_lt in Ha]; apply Hlo; try done; unfold Rdiv; nra.
  - etransitivity; [|apply ceil_div_ge; by destruct (0 <=? b)]. rewrite mult_IZR.
    destruct (Z.leb_spec 0 b) as [Hb|Hb]; [apply IZR_le in Hb|apply IZR_lt in Hb]; apply Hhi; try done; unfold Rdiv; nra.
Qed.

Lemma sqrt_between a b x : 0 <= a -> (IZR a <= x * IZR unit <= IZR b)%R ->
  (IZR (Z.sqrt (a * unit)) <= R_sqrt.sqrt x * IZR unit <= IZR (Z.sqrt (b * unit) + 1))%R.
Proof.
  intros Ha Hx. pose proof unit_pos as Hu. pose proof (IZR_le 0 a Ha) as Ha'.
  assert (0 <= x)%R as Hx0 by (apply (Rmult_le_reg_r (IZR unit)); lra).
  assert (0 <= b) as Hb by (apply le_IZR; lra). assert (0 < unit) as Hz by done.
  pose proof (Z.sqrt_spec (a * unit) ltac:(nia)) as [H1 _]. pose proof (Z.sqrt_spec (b * unit) ltac:(nia)) as [_ H2].
  pose proof (Z.sqrt_nonneg (a * unit)) as H3. pose proof (Z.sqrt_nonneg (b * unit)) as H4.
  apply IZR_le in H1, H3, H4. apply IZR_lt in H2. unfold Z.succ in H2. rewrite !mult_IZR in *.
  assert (0 <= R_sqrt.sqrt x)%R by apply sqrt_pos.
  pose proof (sqrt_sqrt x Hx0) as Hs.
  assert ((R_sqrt.sqrt x * IZR unit) * (R_sqrt.sqrt x * IZR unit) = x * IZR unit * IZR unit)%R as Hsq by nra.
  rewrite plus_IZR in *. split; apply Rsqr_incr_0_var; unfold Rsqr; nra.
Qed.

Lemma interval_related literal : ops_related (OA:=interval_ops literal) (OB:=partial_ops literal) interval_of.
Proof.
  pose proof unit_pos as Hu. split; cbn.
  - intros n k. eexists. split; [done|]. rewrite <- dyad_of_val. set (d := dyad_of _). unfold dyad_val.
    pose proof (pow2_pos d.2) as Hp. assert (0 < pow2 d.2) as Hp' by (by apply lt_IZR).
    replace (IZR d.1 / IZR (pow2 d.2) * IZR unit)%R with (IZR (d.1 * unit) / IZR (pow2 d.2))%R
      by (rewrite mult_IZR; field; lra).
    split; [by apply floor_div_le|by apply ceil_div_ge].
  - intros [|a b] x [|c d] y; try done. intros (r & -> & Hr) (s & -> & Hs). exists (r + s)%R. split; [done|].
    rewrite !plus_IZR. lra.
  - intros [|a b] x [|c d] y; try done. intros (r & -> & Hr) (s & -> & Hs). exists (r - s)%R. split; [done|].
    rewrite !minus_IZR. lra.
  - intros [|a b] x [|c d] y; try done. intros (r & -> & Hr) (s & -> & Hs). exists (r * s)%R. split; [done|].
    pose proof (product_between a b c d _ _ Hr Hs) as [Hlo Hhi].
    replace (r * s * IZR unit)%R with (r * IZR unit * (s * IZR unit) / IZR unit)%R by (field; lra).
    pose proof (Rinv_0_lt_compat _ Hu). split.
    + etransitivity; [by apply floor_div_le|]. unfold Rdiv. apply Rmult_le_compat_r; lra.
    + etransitivity; [|by apply ceil_div_ge]. unfold Rdiv. apply Rmult_le_compat_r; lra.
  - intros [|a b] x [|c d] y; try done. intros Hx Hy.
    pose proof Hx as (r & -> & _). pose proof Hy as (s & -> & _). by apply interval_div_of.
  - intros [|a b] x; try done. intros (r & -> & Hr). exists (- r)%R. split; [done|]. rewrite !opp_IZR. lra.
  - intros [|[] []] x; try done. intros (r & -> & Hr). assert (r = 0)%R as -> by nra.
    exists 0%R. split; [cbn; by rewrite sin_0|lra].
  - intros [|[] []] x; try done. intros (r & -> & Hr). assert (r = 0)%R as -> by nra.
    exists 1%R. split; [cbn; by rewrite cos_0|lra].
  - intros [|a b] x; try done. intros (r & -> & Hr). destruct (Z.leb_spec 0 a) as [Ha|]; [|done].
    cbn. pose proof (IZR_le 0 a Ha). destruct (Rle_dec 0 r) as [|Hn]; [|destruct Hn; apply (Rmult_le_reg_r (IZR unit)); lra].
    exists (R_sqrt.sqrt r). split; [done|]. by apply sqrt_between.
Qed.
