(* ===== verification/MpcDynamics.v ===== *)
(** * The dynamics of the MPC model

    The generated functions that the solver integrates
    (src/generated/c_generated_code/willow_mpc_model/): they are memory safe, the
    sensitivities carry the same equations of motion, and the torques of gravity
    hold the arm still. *)

From Stdlib Require Import SpecFloat Reals Lra.
From stdpp Require Import nmap strings.
From S2P Require Import Prelude Arith Casadi Polynomials Symbolic Analyses PartialRuns MpcModel MpcForward MpcCost.

(** ** Memory *)

Definition mpc_functions : list (casadi_function * casadi_interface) :=
  [willow_mpc_gravity; willow_mpc_expl_ode_fun; willow_mpc_expl_vde_forw; willow_mpc_expl_vde_adj] ++
  flat_map (fun s => [cost_y s; cost_y_jac s; cost_y_hess s]) [Path; Last].

Lemma mpc_functions_well_shaped : forallb well_shaped mpc_functions = true.
Proof. by vm_compute. Qed.

(** ** Calls *)

Section calls.
Context {F : Type} {O : Ops F}.
Definition call_gravity (x gravity : list F) : option (list (option (list F))) :=
  call_casadi (f_code willow_mpc_gravity.1) [Some x] [Some gravity].
Definition call_ode (x u xdot : list F) : option (list (option (list F))) :=
  call_casadi (f_code willow_mpc_expl_ode_fun.1) [Some x; Some u; Some []] [Some xdot].
(** The sensitivities to the first state and to the torques, and their derivatives. *)
Definition call_forw (x Sx Su u xdot dSx dSu : list F) : option (list (option (list F))) :=
  call_casadi (f_code willow_mpc_expl_vde_forw.1) [Some x; Some Sx; Some Su; Some u; Some []] [Some xdot; Some dSx; Some dSu].
Definition call_adj (x lambda u adj : list F) : option (list (option (list F))) :=
  call_casadi (f_code willow_mpc_expl_vde_adj.1) [Some x; Some lambda; Some u; Some []] [Some adj].
End calls.

(** ** The equations of motion within the sensitivities *)

(** The results of the equations of motion, by number, are those of the first
    result of the other. *)
Definition shares_ode (ode forw : list instruction) : bool :=
  match number_expressions ode ∅ 0 ∅ [] with
  | Some (t, outs) =>
      let elements a n := map (fun i => find_number t (EArg a i)) (seq 0 n) in
      match call_casadi (O:=shared_ops t) forw
          [Some (elements 0%nat 12%nat); Some (replicate 144 None); Some (replicate 72 None); Some (elements 1%nat 6%nat); Some []]
          [Some (replicate 12 None); Some (replicate 144 None); Some (replicate 72 None)] with
      | Some (Some l :: _) => all_below 12 (fun i =>
          match nth i l None, value_number outs 0 i with Some n, Some n' => (n =? n')%N | _, _ => false end)
      | _ => false
      end
  | None => false
  end.
Lemma ode_is_shared : shares_ode (f_code willow_mpc_expl_ode_fun.1) (f_code willow_mpc_expl_vde_forw.1) = true.
Proof. by vm_compute. Qed.

(** A call with all arrays present returns, and keeps their lengths. *)
Lemma mpc_call {F} (O : Ops F) f args res : In f mpc_functions ->
  map length args = map elements (f_sparsity_in f.2) -> map length res = map elements (f_sparsity_out f.2) ->
  exists outs, call_casadi (f_code f.1) (map Some args) (map Some res) = Some (map Some outs) /\ map length outs = map length res.
Proof.
  intros Hin Hargs Hres. destruct f as [f i]. cbn [fst snd] in *.
  assert (forall (ls : list (list F)) shapes, map length ls = map elements shapes -> Forall2 fits shapes (map Some ls)) as Hfits.
  { induction ls as [|l ls IH]; intros [|s shapes] Hl; try done; constructor; [by injection Hl|]. apply IH. by injection Hl. }
  pose proof mpc_functions_well_shaped as Hw. rewrite forallb_forall in Hw.
  destruct (well_shaped_calls O f i (map Some args) (map Some res) (map Some res) (Hw _ Hin) (Hfits _ _ Hargs) (Hfits _ _ Hres) (Hfits _ _ Hres) eq_refl)
    as (out & Hout & _ & Hl). rewrite Hout. clear -Hl.
  assert (exists outs, out = map Some outs /\ map length outs = map length res) as (outs & -> & Ho); [|by exists outs].
  revert res Hl. induction out as [|[l|] out IH]; intros [|r res] Hl; try done; [by exists []|].
  injection Hl as Hr Hl. destruct (IH res Hl) as (outs & -> & Ho). exists (l :: outs). split; [done|]. cbn. congruence.
Qed.

Lemma elements_same {F} (O : Ops F) args vals t a l : table_holds args vals t -> args !! a = Some (Some l) ->
  Forall2 (same_value vals) (map (fun i => find_number t (EArg a i)) (seq 0 (length l))) l.
Proof.
  intros Ht Ha. apply Forall2_same_length_lookup_2; [by rewrite length_map, length_seq|].
  intros i n x. rewrite list_lookup_fmap. intros (k & [-> _]%lookup_seq & ->)%fmap_Some Hx n' Hf.
  destruct (Ht _ _ Hf) as (v & Hv & Hn). cbn in Hv. unfold read_arg in Hv. rewrite Ha in Hv. congruence.
Qed.
Lemma nothing_same {F} (vals : Nmap F) l : Forall2 (same_value vals) (replicate (length l) None) l.
Proof. induction l; by constructor. Qed.

Lemma shared_first {F} (O : Ops F) ode forw x Sx Su u xdot dSx dSu f g fSx fSu : shares_ode ode forw = true ->
  length x = 12%nat -> length Sx = 144%nat -> length Su = 72%nat -> length u = 6%nat ->
  length xdot = 12%nat -> length dSx = 144%nat -> length dSu = 72%nat -> length f = 12%nat -> length g = 12%nat ->
  call_casadi ode [Some x; Some u; Some []] [Some xdot] = Some [Some f] ->
  call_casadi forw [Some x; Some Sx; Some Su; Some u; Some []] [Some xdot; Some dSx; Some dSu] = Some [Some g; Some fSx; Some fSu] ->
  g = f.
Proof.
  unfold shares_ode. intros Hs Hx HSx HSu Hu Hxd HdSx HdSu Hf Hg Ho Hof.
  destruct (number_expressions _ _ _ _ _) as [[t outs]|] eqn:Hn; [|done].
  destruct (call_casadi (O:=shared_ops t) _ _ _) as [[|[l|] l']|] eqn:Hc; try done.
  destruct (call_numbered _ _ _ _ _ _ Hn Ho) as (vals & Ht & Hv).
  assert (arrays_related (same_value vals)
    [Some (map (fun i => find_number t (EArg 0 i)) (seq 0 12)); Some (replicate 144 None); Some (replicate 72 None);
     Some (map (fun i => find_number t (EArg 1 i)) (seq 0 6)); Some []]
    [Some x; Some Sx; Some Su; Some u; Some []]) as Hargs.
  { rewrite <- HSx, <- HSu, <- Hx, <- Hu. repeat (constructor; [constructor; (apply nothing_same || by eapply elements_same || constructor)|]). constructor. }
  assert (arrays_related (same_value vals) [Some (replicate 12 None); Some (replicate 144 None); Some (replicate 72 None)]
    [Some xdot; Some dSx; Some dSu]) as Hres.
  { rewrite <- HdSx, <- HdSu, <- Hxd. repeat (constructor; [constructor; apply nothing_same|]). constructor. }
  destruct (call_related _ (shared_related _ vals t Ht) _ _ _ _ _ _ Hargs Hres Hc) as (out & Hout & Hrel).
  assert (out = [Some g; Some fSx; Some fSu]) as -> by congruence.
  inversion Hrel as [|? ? ? ? Hg' _]; subst. inversion Hg' as [? ? Hgl|]; subst.
  apply list_eq. intros i. destruct (decide (i < 12)%nat) as [Hi|Hi].
  - pose proof (all_below_spec _ _ i Hs Hi) as He. cbv beta in He.
    destruct (nth i l None) as [n|] eqn:Hnl; [|done]. destruct (value_number outs 0 i) as [n'|] eqn:Hno; [|done]. apply N.eqb_eq in He as ->.
    destruct (Hv _ _ _ f Hno eq_refl) as (v & Hvn & ->). rewrite nth_lookup in Hnl.
    destruct (l !! i) as [a|] eqn:Hli; [|done]. cbn in Hnl. subst.
    destruct (Forall2_lookup_l _ _ _ _ _ Hgl Hli) as (y & -> & Hy). specialize (Hy _ eq_refl). congruence.
  - by rewrite !lookup_ge_None_2 by lia.
Qed.

(** C11: the sensitivities carry the equations of motion: in any arithmetic, rounding
    included, for the same state and torques the first result of
    [willow_mpc_expl_vde_forw] is the very result of [willow_mpc_expl_ode_fun],
    whatever the sensitivities. *)
Theorem sensitivities_carry_ode {F} (O : Ops F) x Sx Su u xdot dSx dSu :
  length x = 12%nat -> length Sx = 144%nat -> length Su = 72%nat -> length u = 6%nat ->
  length xdot = 12%nat -> length dSx = 144%nat -> length dSu = 72%nat ->
  exists f fSx fSu, call_ode x u xdot = Some [Some f] /\ call_forw x Sx Su u xdot dSx dSu = Some [Some f; Some fSx; Some fSu].
Proof.
  intros Hx HSx HSu Hu Hxd HdSx HdSu. unfold call_ode, call_forw.
  destruct (mpc_call O willow_mpc_expl_ode_fun [x; u; []] [xdot]) as (o & Ho & Hol);
    [by right; left|cbn [map]; by rewrite Hx, Hu|cbn [map]; by rewrite Hxd|].
  destruct (mpc_call O willow_mpc_expl_vde_forw [x; Sx; Su; u; []] [xdot; dSx; dSu]) as (o' & Hof & Hofl);
    [by right; right; left|cbn [map]; by rewrite Hx, HSx, HSu, Hu|cbn [map]; by rewrite Hxd, HdSx, HdSu|].
  destruct o as [|f []]; try done. destruct o' as [|g [|fSx [|fSu []]]]; try done.
  cbn [map] in *. injection Hol as Hf. injection Hofl as Hg _ _. exists f, fSx, fSu. split; [exact Ho|].
  rewrite <- (shared_first O _ _ _ _ _ _ _ _ _ _ _ _ _ ode_is_shared Hx HSx HSu Hu Hxd HdSx HdSu
    (eq_trans Hf Hxd) (eq_trans Hg Hxd) Ho Hof). exact Hof.
Qed.

(** ** Holding still *)

Definition gravity_polynomials (gravity : casadi_function) : list poly :=
  match symbolic_results decimal_double 6 gravity [Some (map Symbolic.Angle (seq 0 6) ++ replicate 6 Symbolic.Unknown)] [6%nat] with
  | Some [G] => map (fun pd => p_reduce 6 pd.1) G
  | _ => []
  end.
(** Under these torques the equations of motion are zero. *)
Definition still (gravity ode : casadi_function) : bool :=
  (length (gravity_polynomials gravity) =? 6)%nat &&
  match call_casadi (O:=term_ops 50 decimal_double) (f_code ode)
      [Some (map Angle (seq 0 6) ++ replicate 6 (Known p_zero)); Some (map Known (gravity_polynomials gravity)); Some []] [Some (replicate 12 Unknown)] with
  | Some [Some l] => forallb zero_term l
  | _ => false
  end.
Lemma mpc_still : still willow_mpc_gravity.1 willow_mpc_expl_ode_fun.1 = true.
Proof. by vm_compute. Qed.

(** Where all angles are zero every division and square root is defined. *)
Definition at_zero : list interval := replicate 12 (Between 0 0).
Definition is_between (t : interval) : bool := match t with Between _ _ => true | Any => false end.
Definition defined_at_zero (gravity ode : casadi_function) : bool :=
  match call_casadi (O:=interval_ops decimal_double) (f_code gravity) [Some at_zero] [Some (replicate 6 Any)] with
  | Some [Some u] =>
      (length u =? 6)%nat && forallb is_between u &&
      match call_casadi (O:=interval_ops decimal_double) (f_code ode) [Some at_zero; Some u; Some []] [Some (replicate 12 Any)] with
      | Some [Some l] => forallb is_between l
      | _ => false
      end
  | _ => false
  end.
Lemma mpc_defined_at_zero : defined_at_zero willow_mpc_gravity.1 willow_mpc_expl_ode_fun.1 = true.
Proof. by vm_compute. Qed.

Lemma gravity_values gravity q dq out :
  length (gravity_polynomials gravity) = 6%nat -> length q = 6%nat -> length dq = 6%nat -> length out = 6%nat ->
  call_casadi (O:=exact_ops decimal_double) (f_code gravity) [Some (q ++ dq)] [Some out]
  = Some [Some (map (p_val (vars q [])) (gravity_polynomials gravity))].
Proof.
  intros HG Hq Hdq Hout. unfold gravity_polynomials in *. destruct (symbolic_results _ _ _ _ _) as [[|G []]|] eqn:Hs; try done.
  assert (arrays_related (stands_for 6 q (fun _ => [])) [Some (map Symbolic.Angle (seq 0 6) ++ replicate 6 Symbolic.Unknown)]
    [Some (angle_functions 6 q ++ map (fun x _ => x) dq)]) as Hargs.
  { constructor; [|constructor]. constructor. apply Forall2_app; [by apply angles_stand|].
    replace (replicate 6 Symbolic.Unknown) with (replicate (length dq) Symbolic.Unknown) by (by rewrite Hdq).
    clear. induction dq; by constructor. }
  destruct (symbolic_results_sound _ _ _ _ _ _ _ _ _ [out] Hs Hargs) as (fs & Hc & Hr); [cbn; by rewrite Hout|].
  inversion Hr as [|? F ? ? HF Hn]; subst. inversion Hn; subst. specialize (Hc 0%R).
  assert (<[6%nat := 0%R]> q = q) as Hx by (apply list_insert_ge; lia).
  assert (arrays_at 0 [Some (angle_functions 6 q ++ map (fun x _ => x) dq)] = [Some (q ++ dq)]) as Ha.
  { unfold arrays_at. rewrite map_cons. cbn [fmap option_fmap option_map map]. by rewrite map_app, (angles_at 6 q Hq), Hx, map_map, map_id. }
  rewrite Ha in Hc. etransitivity; [exact Hc|]. change (arrays_at 0 (map Some [F])) with [Some (map (fun f => f 0%R) F)].
  do 3 f_equal. clear -HF Hx Hq.
  induction HF as [|pd f G F Hf _ IH]; [done|]. cbn [map]. f_equal; [|exact IH].
  specialize (Hf 0%R) as [Hv _]. unfold at_angle in Hv. rewrite Hx in Hv. cbv beta. by rewrite Hv, reduce_val.
Qed.

Lemma still_sound gravity ode q out : still gravity ode = true -> length q = 6%nat -> length out = 12%nat ->
  exists xdot, call_casadi (O:=partial_ops decimal_double) (f_code ode)
    [Some (map Some (q ++ replicate 6 0%R)); Some (map Some (map (p_val (vars q [])) (gravity_polynomials gravity))); Some []] [Some out]
    = Some [Some xdot] /\ Forall (fun a => forall r, a = Some r -> r = 0%R) xdot.
Proof.
  unfold still. intros [HG Hs]%andb_true_iff Hq Hout.
  destruct (call_casadi (O:=term_ops 50 decimal_double) _ _ _) as [[|[l|] [|]]|] eqn:Hc; try done.
  assert (arrays_related (term_of q [])
    [Some (map Angle (seq 0 6) ++ replicate 6 (Known p_zero)); Some (map Known (gravity_polynomials gravity)); Some []]
    [Some (map Some (q ++ replicate 6 0%R)); Some (map Some (map (p_val (vars q [])) (gravity_polynomials gravity))); Some []]) as Hargs.
  { constructor; [|constructor; [|constructor; [constructor; constructor|constructor]]]; constructor.
    - rewrite map_app. apply Forall2_app.
      + apply Forall2_same_length_lookup_2; [by rewrite !length_map, length_seq|]. intros i a x.
        rewrite !list_lookup_fmap. intros (k & [-> _]%lookup_seq & ->)%fmap_Some (y & Hy & ->)%fmap_Some r [= <-]. exact Hy.
      + cbn. repeat (constructor; [by intros r [= <-]; rewrite p_zero_val|]). constructor.
    - rewrite map_map. apply Forall2_fmap, Forall_Forall2_diag, List.Forall_forall. intros p _ r [= <-]. done. }
  assert (arrays_related (term_of q []) [Some (replicate 12 Unknown)] [Some out]) as Hres.
  { constructor; [|constructor]. constructor. rewrite <- Hout. clear. induction out; by constructor. }
  destruct (call_related _ (term_related q [] Hq 50 decimal_double) _ _ _ _ _ _ Hargs Hres Hc) as (o & Ho & Hrel).
  inversion Hrel as [|? a ? ? Ha Hn]; subst. inversion Ha as [? xdot Hx|]; subst. inversion Hn; subst.
  exists xdot. split; [done|]. clear -Hs Hx Hq. induction Hx as [|t a l xdot Ht _ IH]; [constructor|].
  cbn in Hs. apply andb_true_iff in Hs as [Hz Hs]. constructor; [|by apply IH].
  intros r ->. by eapply zero_term_of.
Qed.

Lemma between_defined ts xs : forallb is_between ts = true -> Forall2 interval_of ts xs -> Forall is_Some xs.
Proof.
  intros Hb H. induction H as [|t x ts xs Ht _ IH]; [constructor|]. cbn in Hb. apply andb_true_iff in Hb as [Hbt Hb].
  constructor; [|by apply IH]. destruct t as [|lo hi]; [done|]. destruct Ht as (r & -> & _). by eexists.
Qed.
Lemma zero_intervals n : Forall2 interval_of (replicate n (Between 0 0)) (map Some (replicate n 0%R)).
Proof. induction n; constructor; [|done]. exists 0%R. split; [done|]. pose proof unit_pos. lra. Qed.

Lemma defined_sound gravity ode u gravity_out xdot_out xdot : defined_at_zero gravity ode = true ->
  length gravity_out = 6%nat -> length xdot_out = 12%nat ->
  call_casadi (O:=exact_ops decimal_double) (f_code gravity) [Some (replicate 12 0%R)] [Some gravity_out] = Some [Some u] ->
  call_casadi (O:=partial_ops decimal_double) (f_code ode) [Some (map Some (replicate 12 0%R)); Some (map Some u); Some []] [Some xdot_out]
    = Some [Some xdot] -> Forall is_Some xdot.
Proof.
  unfold defined_at_zero. intros Hd Hg Hx Hgu Hode.
  destruct (call_casadi (O:=interval_ops _) _ _ _) as [[|[ui|] [|]]|] eqn:Hci; try done.
  apply andb_true_iff in Hd as [[Hlu Hbu]%andb_true_iff Hd].
  destruct (call_casadi (O:=interval_ops _) _ [_; Some ui; _] _) as [[|[l|] [|]]|] eqn:Hco; try done.
  assert (forall n (x : list (option R)), length x = n -> Forall2 interval_of (replicate n Any) x) as Hany
    by (intros n x <-; induction x; by constructor).
  destruct (call_related _ (interval_related decimal_double) _ _ [Some (map Some (replicate 12 0%R))] _ [Some (map Some gravity_out)] _
    ltac:(constructor; [constructor; apply zero_intervals|constructor])
    ltac:(constructor; [constructor; apply Hany; by rewrite length_map|constructor]) Hci) as (o & Ho & Hrel).
  inversion Hrel as [|? a ? ? Ha Hn]; subst. inversion Ha as [? up Hup|]; subst. inversion Hn; subst.
  assert (forall xs, Forall2 exact_of (map Some xs) xs) as Hex by (intros xs; induction xs; constructor; [by intros r [= <-]|done]).
  destruct (call_related _ (exact_related decimal_double) _ _ [Some (replicate 12 0%R)] _ [Some gravity_out] _
    ltac:(constructor; [constructor; apply Hex|constructor]) ltac:(constructor; [constructor; apply Hex|constructor]) Ho) as (o & Ho' & Hrel').
  rewrite Hgu in Ho'. injection Ho' as <-. inversion Hrel' as [|? a' ? ? Ha' _]; subst. inversion Ha' as [? ? Hue|]; subst.
  assert (up = map Some u) as ->.
  { pose proof (between_defined _ _ Hbu Hup) as Hsome. clear -Hue Hsome. induction Hue as [|x y xs ys Hxy _ IH]; [done|].
    inversion Hsome as [|? ? [r ->] Hs]; subst. cbn. by rewrite (Hxy r eq_refl), <- IH. }
  destruct (call_related _ (interval_related decimal_double) _ _ [Some (map Some (replicate 12 0%R)); Some (map Some u); Some []] _ [Some xdot_out] _
    ltac:(constructor; [constructor; apply zero_intervals|constructor; [by constructor|constructor; [constructor; constructor|constructor]]])
    ltac:(constructor; [constructor; by apply Hany|constructor]) Hco) as (o & Ho'' & Hrel'').
  rewrite Hode in Ho''. injection Ho'' as <-. inversion Hrel'' as [|? a'' ? ? Ha'' _]; subst. inversion Ha'' as [? ? Hl|]; subst.
  by eapply between_defined.
Qed.

(** C10: the torques that the program takes for gravity hold the arm of the model still:
    for every pose, with no velocities and the torques that [willow_mpc_gravity]
    returns there, every element that [willow_mpc_expl_ode_fun] computes is exactly
    zero, unless a division by zero or the root of a negative number leaves it
    undefined; and where the angles are zero nothing is undefined. *)
Theorem mpc_gravity_holds_still q gravity_out xdot_out :
  length q = 6%nat -> length gravity_out = 6%nat -> length xdot_out = 12%nat ->
  exists u xdot,
    call_gravity (O:=mpc_ops) (q ++ replicate 6 0%R) gravity_out = Some [Some u] /\
    call_ode (O:=partial_ops decimal_double) (map Some (q ++ replicate 6 0%R)) (map Some u) xdot_out = Some [Some xdot] /\
    Forall (fun a => a = None \/ a = Some 0%R) xdot /\
    (q = replicate 6 0%R -> Forall (eq (Some 0%R)) xdot).
Proof.
  intros Hq Hg Hx. pose proof mpc_still as Hs. pose proof Hs as Hs'. unfold still in Hs'. apply andb_true_iff in Hs' as [HG%Nat.eqb_eq _].
  pose proof (gravity_values _ q (replicate 6 0%R) gravity_out HG Hq eq_refl Hg) as Hu.
  destruct (still_sound _ _ q xdot_out Hs Hq Hx) as (xdot & Ho & Hz).
  exists (map (p_val (vars q [])) (gravity_polynomials willow_mpc_gravity.1)), xdot.
  split; [exact Hu|]. split; [exact Ho|].
  split.
  - eapply List.Forall_impl; [|exact Hz]. intros [r|] Hr; [right; by rewrite (Hr r eq_refl)|by left].
  - intros ->. pose proof (defined_sound _ _ _ _ _ _ mpc_defined_at_zero Hg Hx Hu Ho) as Hd.
    clear -Hz Hd. induction Hz as [|a xdot Ha _ IH]; [constructor|]. inversion Hd as [|? ? [r ->] Hd']; subst.
    constructor; [by rewrite (Ha r eq_refl)|by apply IH].
Qed.

(** ** Witnesses *)

Lemma sensitivities_carry_ode_witness :
  let O := double_ops (fun _ => S754_zero false) (fun _ => decimal_double 1 0) in
  let zeros n := replicate n (S754_zero false) in
  exists f fSx fSu, call_ode (zeros 12%nat) (zeros 6%nat) (zeros 12%nat) = Some [Some f] /\
    call_forw (zeros 12%nat) (zeros 144%nat) (zeros 72%nat) (zeros 6%nat) (zeros 12%nat) (zeros 144%nat) (zeros 72%nat)
    = Some [Some f; Some fSx; Some fSu].
Proof.
  exact (sensitivities_carry_ode (double_ops (fun _ => S754_zero false) (fun _ => decimal_double 1 0))
    (replicate 12 (S754_zero false)) (replicate 144 (S754_zero false)) (replicate 72 (S754_zero false)) (replicate 6 (S754_zero false))
    (replicate 12 (S754_zero false)) (replicate 144 (S754_zero false)) (replicate 72 (S754_zero false))
    eq_refl eq_refl eq_refl eq_refl eq_refl eq_refl eq_refl).
Defined.

Lemma mpc_gravity_holds_still_witness : exists u xdot,
  call_gravity (O:=mpc_ops) (rest 12) (rest 6) = Some [Some u] /\
  call_ode (O:=partial_ops decimal_double) (map Some (rest 12)) (map Some u) (map Some (rest 12)) = Some [Some xdot] /\
  Forall (eq (Some 0%R)) xdot.
Proof.
  destruct (mpc_gravity_holds_still (rest 6) (rest 6) (map Some (rest 12)) eq_refl eq_refl eq_refl) as (u & xdot & Hu & Ho & _ & Hz).
  exists u, xdot. split; [exact Hu|]. split; [exact Ho|]. exact (Hz eq_refl).
Defined.

(** ** The sensitivities of the MPC model

    What the solver integrates beside the state (src/generated/c_generated_code/
    willow_mpc_model/): sensitivities forward and an adjoint backward, whose
    equations are linear in them, as those of derivatives are. *)

(** *** Kinds of the results *)

Definition kinds_checked (affine : bool) (code : list instruction) (args : list (list kind)) (res : list nat) (expected : list (kind -> bool)) : bool :=
  match call_casadi (O:=kind_ops affine) code (map Some args) (map (fun n => Some (replicate n Other)) res) with
  | Some out => (length out =? length expected)%nat &&
      forallb (fun ae => match ae.1 with Some l => forallb ae.2 l | None => false end) (zip out expected)
  | None => false
  end.

Definition forw_kinds (kSx kSu : kind) : list (list kind) :=
  [replicate 12 Same; replicate 144 kSx; replicate 72 kSu; replicate 6 Same; []].
Definition adj_kinds : list (list kind) := [replicate 12 Same; replicate 12 Linear; replicate 6 Same; []].

Lemma forw_state_kinds : kinds_checked false (f_code willow_mpc_expl_vde_forw.1) (forw_kinds Linear Same) [12; 144; 72]%nat
  [is_same; is_linear false; is_same] = true.
Proof. by vm_compute. Qed.
Lemma forw_torque_kinds : kinds_checked true (f_code willow_mpc_expl_vde_forw.1) (forw_kinds Same Linear) [12; 144; 72]%nat
  [is_same; is_same; is_linear true] = true.
Proof. by vm_compute. Qed.
Lemma adj_linear_kinds : kinds_checked false (f_code willow_mpc_expl_vde_adj.1) adj_kinds [18]%nat [is_linear false] = true.
Proof. by vm_compute. Qed.

(** What the check gives: the results of the three runs, of the expected kinds. *)
Lemma kinds_sound s t affine code kinds args outs expected : (affine = true -> t = (1 - s)%R) ->
  kinds_checked affine code kinds (map length outs) expected = true -> Forall2 (Forall2 (of_kind s t)) kinds args ->
  exists fouts, (forall i, call_casadi (O:=mpc_ops) code (part_of i args) (map Some outs) = Some (part_of i fouts)) /\
    Forall2 (fun (e : kind -> bool) fs => exists ks, forallb e ks = true /\ Forall2 (of_kind s t) ks fs) expected fouts.
Proof.
  intros Ht Hc Hargs. unfold kinds_checked in Hc. rewrite map_map in Hc.
  assert (map (fun l : list R => Some (replicate (length l) Other)) outs = map (fun l : list R => Some (map (fun _ => Other) l)) outs) as Hr
    by (apply map_ext; intros l; f_equal; induction l; cbn; congruence).
  rewrite Hr in Hc. destruct (call_casadi (O:=kind_ops affine) _ _ _) as [out|] eqn:Hcall; [|done].
  apply andb_true_iff in Hc as [Hl%Nat.eqb_eq Hc].
  assert (exists kouts, out = map Some kouts /\ Forall2 (fun (e : kind -> bool) ks => forallb e ks = true) expected kouts) as (kouts & -> & Hk).
  { clear -Hl Hc. revert expected Hl Hc. induction out as [|a out IH]; intros [|e expected] Hl Hc; try done; [by exists []|].
    cbn in Hl, Hc. apply andb_true_iff in Hc as [Ha Hc]. destruct a as [l|]; [|done].
    destruct (IH expected) as (kouts & -> & Hk); [lia|done|]. exists (l :: kouts). split; [done|]. by constructor. }
  destruct (superposed_call decimal_double s t affine Ht _ _ _ _ _ Hcall Hargs) as (fouts & Hf & Hrel).
  exists fouts. split; [exact Hf|]. clear -Hk Hrel. revert fouts Hrel.
  induction Hk as [|e ks expected kouts He _ IH]; intros fouts Hrel; inversion Hrel; subst; constructor; [by exists ks|by apply IH].
Qed.

(** *** Linear equations *)

Lemma forward_parts s t affine kSx kSu x u Sx Su xdot dSx dSu e0 e1 e2 : (affine = true -> t = (1 - s)%R) ->
  kinds_checked affine (f_code willow_mpc_expl_vde_forw.1) (forw_kinds kSx kSu) [12; 144; 72]%nat [e0; e1; e2] = true ->
  length x = 12%nat -> length u = 6%nat -> length xdot = 12%nat -> length dSx = 144%nat -> length dSu = 72%nat ->
  Forall2 (of_kind s t) (replicate 144 kSx) Sx -> Forall2 (of_kind s t) (replicate 72 kSu) Su ->
  exists f D U, (forall i, call_forw (O:=mpc_ops) x (map (fun f => f i) Sx) (map (fun f => f i) Su) u xdot dSx dSu
      = Some [Some (map (fun f => f i) f); Some (map (fun f => f i) D); Some (map (fun f => f i) U)]) /\
    Forall2 (fun (e : kind -> bool) fs => exists ks, forallb e ks = true /\ Forall2 (of_kind s t) ks fs) [e0; e1; e2] [f; D; U].
Proof.
  intros Ht Hc Hx Hu Hxd HdSx HdSu HSx HSu.
  destruct (kinds_sound s t affine (f_code willow_mpc_expl_vde_forw.1) (forw_kinds kSx kSu) [same_part x; Sx; Su; same_part u; []] [xdot; dSx; dSu] [e0; e1; e2] Ht)
    as (fouts & Hf & Hk).
  - cbn [map]. rewrite Hxd, HdSx, HdSu. exact Hc.
  - clear Hc. constructor; [pose proof (same_part_kind s t x) as H; by rewrite Hx in H|]. constructor; [done|]. constructor; [done|].
    constructor; [pose proof (same_part_kind s t u) as H; by rewrite Hu in H|]. constructor; [constructor|constructor].
  - clear Hc. pose proof (Forall2_length Hk) as Hl. destruct fouts as [|f [|D [|U []]]]; try done.
    exists f, D, U. split; [|done]. intros i. specialize (Hf i). unfold part_of in Hf. cbn [map] in Hf. rewrite !same_part_at in Hf. exact Hf.
Qed.

(** The sensitivities to the first state follow a linear equation and disturb nothing
    else: with a combination of two of them [willow_mpc_expl_vde_forw] leaves the
    combination of their derivatives, and the same derivatives of the state and of
    the sensitivities to the torques. *)
Theorem state_sensitivities_are_linear s t x Sx1 Sx2 Su u xdot dSx dSu :
  length x = 12%nat -> length Sx1 = 144%nat -> length Sx2 = 144%nat -> length Su = 72%nat -> length u = 6%nat ->
  length xdot = 12%nat -> length dSx = 144%nat -> length dSu = 72%nat ->
  exists f D1 D2 U,
    call_forw (O:=mpc_ops) x Sx1 Su u xdot dSx dSu = Some [Some f; Some D1; Some U] /\
    call_forw (O:=mpc_ops) x Sx2 Su u xdot dSx dSu = Some [Some f; Some D2; Some U] /\
    call_forw (O:=mpc_ops) x (combine s t Sx1 Sx2) Su u xdot dSx dSu = Some [Some f; Some (combine s t D1 D2); Some U].
Proof.
  intros Hx H1 H2 HSu Hu Hxd HdSx HdSu. assert (length Sx1 = length Sx2) as H12 by congruence.
  pose proof (combined_part_kind s t Sx1 Sx2 H12) as HkS. rewrite H1 in HkS.
  pose proof (same_part_kind s t Su) as HkU. rewrite HSu in HkU.
  destruct (forward_parts s t false Linear Same x u _ _ xdot dSx dSu _ _ _ ltac:(done) forw_state_kinds Hx Hu Hxd HdSx HdSu HkS HkU)
    as (f & D & U & Hcall & Hk).
  inversion Hk as [|? ? ? ? (kf & Hkf & Hf) Hk']; subst. inversion Hk' as [|? ? ? ? (kD & HkD & HD) Hk'']; subst.
  inversion Hk'' as [|? ? ? ? (kU & HkU' & HU) _]; subst.
  exists (map (fun g => g First) f), (map (fun g => g First) D), (map (fun g => g Second) D), (map (fun g => g First) U).
  pose proof (Hcall First) as C1. pose proof (Hcall Second) as C2. pose proof (Hcall Both) as C3.
  rewrite (combined_part_at s t First Sx1 Sx2 H12), same_part_at in C1.
  rewrite (combined_part_at s t Second Sx1 Sx2 H12), same_part_at in C2.
  rewrite (combined_part_at s t Both Sx1 Sx2 H12), same_part_at in C3.
  rewrite (same_parts s t _ _ Second Hf Hkf), (same_parts s t _ _ Second HU HkU') in C2.
  rewrite (same_parts s t _ _ Both Hf Hkf), (same_parts s t _ _ Both HU HkU'), (linear_parts s t false ltac:(done) _ _ HD HkD) in C3.
  by split_and!.
Qed.

(** Those to the torques follow an affine equation: the torques act as well. *)
Theorem torque_sensitivities_are_affine s x Sx Su1 Su2 u xdot dSx dSu :
  length x = 12%nat -> length Sx = 144%nat -> length Su1 = 72%nat -> length Su2 = 72%nat -> length u = 6%nat ->
  length xdot = 12%nat -> length dSx = 144%nat -> length dSu = 72%nat ->
  exists f D U1 U2,
    call_forw (O:=mpc_ops) x Sx Su1 u xdot dSx dSu = Some [Some f; Some D; Some U1] /\
    call_forw (O:=mpc_ops) x Sx Su2 u xdot dSx dSu = Some [Some f; Some D; Some U2] /\
    call_forw (O:=mpc_ops) x Sx (combine s (1 - s) Su1 Su2) u xdot dSx dSu = Some [Some f; Some D; Some (combine s (1 - s) U1 U2)].
Proof.
  intros Hx HSx H1 H2 Hu Hxd HdSx HdSu. assert (length Su1 = length Su2) as H12 by congruence.
  set (t := (1 - s)%R).
  pose proof (combined_part_kind s t Su1 Su2 H12) as HkU. rewrite H1 in HkU.
  pose proof (same_part_kind s t Sx) as HkS. rewrite HSx in HkS.
  destruct (forward_parts s t true Same Linear x u _ _ xdot dSx dSu _ _ _ ltac:(done) forw_torque_kinds Hx Hu Hxd HdSx HdSu HkS HkU)
    as (f & D & U & Hcall & Hk).
  inversion Hk as [|? ? ? ? (kf & Hkf & Hf) Hk']; subst. inversion Hk' as [|? ? ? ? (kD & HkD & HD) Hk'']; subst.
  inversion Hk'' as [|? ? ? ? (kU & HkU' & HU) _]; subst.
  exists (map (fun g => g First) f), (map (fun g => g First) D), (map (fun g => g First) U), (map (fun g => g Second) U).
  pose proof (Hcall First) as C1. pose proof (Hcall Second) as C2. pose proof (Hcall Both) as C3.
  rewrite (combined_part_at s t First Su1 Su2 H12), same_part_at in C1.
  rewrite (combined_part_at s t Second Su1 Su2 H12), same_part_at in C2.
  rewrite (combined_part_at s t Both Su1 Su2 H12), same_part_at in C3.
  rewrite (same_parts s t _ _ Second Hf Hkf), (same_parts s t _ _ Second HD HkD) in C2.
  rewrite (same_parts s t _ _ Both Hf Hkf), (same_parts s t _ _ Both HD HkD), (linear_parts s t true ltac:(done) _ _ HU HkU') in C3.
  by split_and!.
Qed.

(** The adjoint is linear in its seed. *)
Theorem adjoint_is_linear s t x lambda1 lambda2 u adj :
  length x = 12%nat -> length lambda1 = 12%nat -> length lambda2 = 12%nat -> length u = 6%nat -> length adj = 18%nat ->
  exists A1 A2,
    call_adj (O:=mpc_ops) x lambda1 u adj = Some [Some A1] /\
    call_adj (O:=mpc_ops) x lambda2 u adj = Some [Some A2] /\
    call_adj (O:=mpc_ops) x (combine s t lambda1 lambda2) u adj = Some [Some (combine s t A1 A2)].
Proof.
  intros Hx H1 H2 Hu Ha. assert (length lambda1 = length lambda2) as H12 by congruence.
  pose proof (combined_part_kind s t lambda1 lambda2 H12) as Hkl. rewrite H1 in Hkl.
  pose proof (same_part_kind s t x) as Hkx. rewrite Hx in Hkx. pose proof (same_part_kind s t u) as Hku. rewrite Hu in Hku.
  destruct (kinds_sound s t false (f_code willow_mpc_expl_vde_adj.1) adj_kinds
    [same_part x; combined_part s t lambda1 lambda2; same_part u; []] [adj] [is_linear false] ltac:(done)) as (fouts & Hf & Hk).
  - cbn [map]. rewrite Ha. exact adj_linear_kinds.
  - repeat (constructor; [assumption|]). constructor; constructor.
  - inversion Hk as [|? A ? ? (ks & Hks & HA) Hk']; subst. inversion Hk'; subst.
    exists (map (fun g => g First) A), (map (fun g => g Second) A).
    pose proof (Hf First) as C1. pose proof (Hf Second) as C2. pose proof (Hf Both) as C3.
    unfold part_of in C1, C2, C3. cbn [map] in C1, C2, C3.
    rewrite (combined_part_at s t First lambda1 lambda2 H12), !same_part_at in C1.
    rewrite (combined_part_at s t Second lambda1 lambda2 H12), !same_part_at in C2.
    rewrite (combined_part_at s t Both lambda1 lambda2 H12), !same_part_at, (linear_parts s t false ltac:(done) _ _ HA Hks) in C3.
    by split_and!.
Qed.
