(* ===== verification/MpcCapsule.v ===== *)
(** * The generated solver of the position controller

    [src/generated/c_generated_code/acados_solver_willow_mpc.c] with its header:
    the capsule that states the control problem to acados, solves it and frees it.
    acados is third-party code, behind calls: an object of its own is the pointer
    that it answered (0 for null), and a call names every pointer it is given.
    What the wrapper of [MPCSolver.v] asks is answered here by the capsule, so that
    its programs become programs over the calls to acados; a ledger of what acados
    has been given says when such a call is in order. *)

From Stdlib Require Import SpecFloat.
From stdpp Require Import sets strings.
From S2P Require Import Prelude DeviceTypes Commands Prog ArmImpl Arith MPCTrajectory MPCSession MPCSolver Casadi Analyses MpcModel MpcForward MpcCost MpcDynamics.

(** ** What acados is called with *)

Inductive acados_object := Nlp_plan | Nlp_config | Nlp_dims | Nlp_in | Nlp_out | Nlp_opts | Nlp_solver.

(** The function objects of the capsule, by stage where there is one each. *)
Inductive external_function :=
| expl_ode_fun (stage : nat) | expl_vde_for (stage : nat) | expl_vde_adj (stage : nat)
| cost_y_fun (stage : nat) | cost_y_fun_jac_ut_xt (stage : nat) | cost_y_hess_at (stage : nat)
| cost_y_e_fun | cost_y_e_fun_jac_ut_xt | cost_y_e_hess.

(** The generated function that each one calls ([CREATE_CASADI]). *)
Definition generated_function (f : external_function) : casadi_function * casadi_interface :=
  match f with
  | expl_ode_fun _ => willow_mpc_expl_ode_fun
  | expl_vde_for _ => willow_mpc_expl_vde_forw
  | expl_vde_adj _ => willow_mpc_expl_vde_adj
  | cost_y_fun _ => willow_mpc_cost_y_fun
  | cost_y_fun_jac_ut_xt _ => willow_mpc_cost_y_fun_jac_ut_xt
  | cost_y_hess_at _ => willow_mpc_cost_y_hess
  | cost_y_e_fun => willow_mpc_cost_y_e_fun
  | cost_y_e_fun_jac_ut_xt => willow_mpc_cost_y_e_fun_jac_ut_xt
  | cost_y_e_hess => willow_mpc_cost_y_e_hess
  end.

(** What [create] writes into the plan. *)
Inductive plan_choice := SQP_RTI | FULL_CONDENSING_HPIPM | NO_REGULARIZE | FIXED_STEP | NONLINEAR_LS | BGH | CONTINUOUS_MODEL | ERK.
Record ocp_nlp_plan_t := {
  p_nlp_solver : plan_choice; p_qp_solver : plan_choice;
  p_regularization : plan_choice; p_globalization : plan_choice;
  p_nlp_cost : list plan_choice; p_nlp_constraints : list plan_choice;
  p_nlp_dynamics : list plan_choice; p_sim_solver : list plan_choice
}.

Inductive value := Doubles (l : list double) | Ints (l : list Z).
Inductive option_value := Text (s : string) | Number (x : double) | Count (n : Z).
Inductive part := Cost | Constraints | Dynamics.

Inductive acados_call : Type -> Type :=
| Calloc : acados_call bool                          (* [false]: null *)
| FreeMemory : acados_call unit
| CreatePlan (n : nat) : acados_call Z
| CreateConfig (plan : Z) (p : ocp_nlp_plan_t) : acados_call Z
| CreateDims (config : Z) : acados_call Z
| CreateIn (config dims : Z) : acados_call Z
| CreateOut (config dims : Z) : acados_call Z
| CreateOpts (config dims : Z) : acados_call Z
| CreateSolver (config dims opts nlp_in : Z) : acados_call Z
| CreateFunction (f : external_function) (external_workspace : bool) : acados_call unit
| SetOptVars (config dims : Z) (field : string) (v : list Z) : acados_call unit
| SetDim (p : part) (config dims : Z) (stage : nat) (field : string) (n : Z) : acados_call unit
| SetFunction (p : part) (config dims nlp_in : Z) (stage : nat) (field : string) (f : external_function) : acados_call unit
| CostModelSet (config dims nlp_in : Z) (stage : nat) (field : string) (v : value) : acados_call unit
| ConstraintsModelSet (config dims nlp_in nlp_out : Z) (stage : nat) (field : string) (v : value) : acados_call unit
| NlpInSet (config dims nlp_in : Z) (stage : nat) (field : string) (v : value) : acados_call unit
| NlpOutSet (config dims nlp_out nlp_in : Z) (stage : nat) (field : string) (v : value) : acados_call unit
| NlpOutGet (config dims nlp_out : Z) (stage : nat) (field : string) : acados_call (list double)
| OptsSet (config opts : Z) (field : string) (v : option_value) : acados_call unit
| OptsSetAtStage (config opts : Z) (stage : nat) (field : string) (v : option_value) : acados_call unit
| Precompute (solver nlp_in nlp_out : Z) : acados_call Z
| NlpSolve (solver nlp_in nlp_out : Z) : acados_call Z
| ResetQp (solver nlp_in nlp_out : Z) : acados_call unit
| Destroy (o : acados_object) (p : Z) : acados_call unit
| FreeFunction (f : external_function) : acados_call unit
| BadAccess : acados_call Empty_set.                 (* through a null pointer, or out of an array *)

Definition acados := prog acados_call.
Definition bad_access {A} : acados A := Call BadAccess (Empty_set_rect (fun _ => acados A)).

Fixpoint for_each {A} (l : list A) (body : A -> acados unit) : acados unit :=
  match l with [] => mret tt | x :: l => _ ← body x; for_each l body end.
(** [if (p) destroy(p);] *)
Definition destroy_object (o : acados_object) (p : Z) : acados unit :=
  if p =? 0 then mret tt else call (Destroy o p).

(** ** The capsule

    The structs of the function objects are acados's; [warm_started] and
    [gravity_reference] are members of [MPCSolver.CartesianMPCSolver]. *)

Record willow_mpc_solver_capsule := {
  nlp_in : Z; nlp_out : Z; nlp_solver : Z; nlp_opts : Z;
  nlp_solver_plan : Z; nlp_config : Z; nlp_dims : Z;
  initialized : bool
}.
(** Zeroed memory. *)
Definition capsule0 : willow_mpc_solver_capsule := {|
  nlp_in := 0; nlp_out := 0; nlp_solver := 0; nlp_opts := 0;
  nlp_solver_plan := 0; nlp_config := 0; nlp_dims := 0; initialized := false |}.

Definition WILLOW_MPC_NX : nat := 12.
Definition WILLOW_MPC_NU : nat := 6.
Definition WILLOW_MPC_NY : nat := 15.
Definition WILLOW_MPC_NYN : nat := 9.
Definition WILLOW_MPC_N : nat := 5.
Definition WILLOW_MPC_DT : double := decimal 2 2.

Definition willow_mpc_acados_create_capsule : acados (option willow_mpc_solver_capsule) :=
  made ← call Calloc; mret (if made : bool then Some capsule0 else None).
Definition willow_mpc_acados_free_capsule (cap : option willow_mpc_solver_capsule) : acados Z :=
  match cap with None => mret 0 | Some _ => _ ← call FreeMemory; mret 0 end.

Definition the_plan : ocp_nlp_plan_t := {|
  p_nlp_solver := SQP_RTI; p_qp_solver := FULL_CONDENSING_HPIPM;
  p_regularization := NO_REGULARIZE; p_globalization := FIXED_STEP;
  p_nlp_cost := repeat NONLINEAR_LS (S WILLOW_MPC_N); p_nlp_constraints := repeat BGH (S WILLOW_MPC_N);
  p_nlp_dynamics := repeat CONTINUOUS_MODEL WILLOW_MPC_N; p_sim_solver := repeat ERK WILLOW_MPC_N |}.

(** The stages up to the last one, and without it. *)
Definition all_stages : list nat := seq 0 (S WILLOW_MPC_N).
Definition stages : list nat := seq 0 WILLOW_MPC_N.

(** The dimensions (lines 74-92). *)
Definition dim_nx : list Z := map (fun _ => Z.of_nat WILLOW_MPC_NX) all_stages.
Definition dim_nu : list Z := map (fun i => if (i <? WILLOW_MPC_N)%nat then Z.of_nat WILLOW_MPC_NU else 0) all_stages.
Definition dim_zeros : list Z := map (fun _ => 0) all_stages.
Definition set_dimensions (config dims : Z) : acados unit :=
  _ ← call (SetOptVars config dims "nx" dim_nx);
  _ ← call (SetOptVars config dims "nu" dim_nu);
  _ ← call (SetOptVars config dims "nz" dim_zeros);
  _ ← call (SetOptVars config dims "ns" dim_zeros);
  _ ← call (SetOptVars config dims "np" dim_zeros);
  for_each all_stages (fun i =>
    let ny := if (i <? WILLOW_MPC_N)%nat then Z.of_nat WILLOW_MPC_NY else Z.of_nat WILLOW_MPC_NYN in
    let nbxe := if (i =? 0)%nat then Z.of_nat WILLOW_MPC_NX else 0 in
    _ ← call (SetDim Cost config dims i "ny" ny);
    _ ← call (SetDim Constraints config dims i "nbx" (nth i dim_nx 0));
    _ ← call (SetDim Constraints config dims i "nbu" (nth i dim_nu 0));
    call (SetDim Constraints config dims i "nbxe" nbxe)).

(** The function objects, and where each is used (lines 98-129). *)
Definition CREATE_CASADI (f : external_function) : acados unit := call (CreateFunction f false).
Definition set_functions (config dims nlp_in : Z) : acados unit :=
  _ ← for_each stages (fun i =>
    _ ← CREATE_CASADI (expl_ode_fun i);
    _ ← CREATE_CASADI (expl_vde_for i);
    _ ← CREATE_CASADI (expl_vde_adj i);
    _ ← CREATE_CASADI (cost_y_fun i);
    _ ← CREATE_CASADI (cost_y_fun_jac_ut_xt i);
    _ ← CREATE_CASADI (cost_y_hess_at i);
    _ ← call (SetFunction Dynamics config dims nlp_in i "expl_ode_fun" (expl_ode_fun i));
    _ ← call (SetFunction Dynamics config dims nlp_in i "expl_vde_forw" (expl_vde_for i));
    _ ← call (SetFunction Dynamics config dims nlp_in i "expl_vde_adj" (expl_vde_adj i));
    _ ← call (SetFunction Cost config dims nlp_in i "nls_y_fun" (cost_y_fun i));
    _ ← call (SetFunction Cost config dims nlp_in i "nls_y_fun_jac" (cost_y_fun_jac_ut_xt i));
    call (SetFunction Cost config dims nlp_in i "nls_y_hess" (cost_y_hess_at i)));
  _ ← CREATE_CASADI cost_y_e_fun;
  _ ← CREATE_CASADI cost_y_e_fun_jac_ut_xt;
  _ ← CREATE_CASADI cost_y_e_hess;
  _ ← call (SetFunction Cost config dims nlp_in WILLOW_MPC_N "nls_y_fun" cost_y_e_fun);
  _ ← call (SetFunction Cost config dims nlp_in WILLOW_MPC_N "nls_y_fun_jac" cost_y_e_fun_jac_ut_xt);
  call (SetFunction Cost config dims nlp_in WILLOW_MPC_N "nls_y_hess" cost_y_e_hess).

(** The weights, which are written out as square matrices, and the limits. *)
Definition diagonal (l : list double) : list double :=
  flat_map (fun i => map (fun j => if (i =? j)%nat then nth i l (of_Z 0) else of_Z 0) (seq 0 (length l))) (seq 0 (length l)).
Definition W : list double := diagonal (repeat (of_Z 1000) 3 ++ repeat (of_Z 1) 6 ++ repeat (decimal 1 2) 6).
Definition We : list double := diagonal (repeat (of_Z 5000) 3 ++ repeat (of_Z 2) 6).
Definition yref : list double := repeat (of_Z 0) WILLOW_MPC_NY.
Definition lbx : list double :=
  [opp (decimal 314 2); of_Z 0; of_Z 0; opp (decimal 13 1); opp (decimal 157 2); opp (decimal 157 2);
   opp (decimal 1248 2); opp (decimal 3744 3); opp (decimal 3744 3); opp (decimal 1248 2); opp (decimal 1248 2);
   opp (decimal 1248 2)].
Definition ubx : list double :=
  [decimal 314 2; decimal 314 2; decimal 314 2; decimal 13 1; decimal 157 2; decimal 157 2;
   decimal 1248 2; decimal 3744 3; decimal 3744 3; decimal 1248 2; decimal 1248 2; decimal 1248 2].
Definition lbu : list double := [opp (of_Z 5); opp (of_Z 5); opp (of_Z 5); opp (of_Z 3); opp (of_Z 3); opp (of_Z 3)].
Definition ubu : list double := [of_Z 5; of_Z 5; of_Z 5; of_Z 3; of_Z 3; of_Z 3].
Definition x0 : list double := repeat (of_Z 0) WILLOW_MPC_NX.
Definition u0 : list double := repeat (of_Z 0) WILLOW_MPC_NU.
Definition idxbx : list Z := seqZ 0 (Z.of_nat WILLOW_MPC_NX).
Definition idxbu : list Z := seqZ 0 (Z.of_nat WILLOW_MPC_NU).

(** The problem (lines 144-160). *)
Definition set_problem (config dims nlp_in nlp_out : Z) : acados unit :=
  _ ← for_each all_stages (fun i =>
    _ ← call (CostModelSet config dims nlp_in i "W" (Doubles (if (i <? WILLOW_MPC_N)%nat then W else We)));
    _ ← call (CostModelSet config dims nlp_in i "yref" (Doubles yref));
    _ ← call (ConstraintsModelSet config dims nlp_in nlp_out i "idxbx" (Ints idxbx));
    _ ← call (ConstraintsModelSet config dims nlp_in nlp_out i "lbx" (Doubles (if (i =? 0)%nat then x0 else lbx)));
    _ ← call (ConstraintsModelSet config dims nlp_in nlp_out i "ubx" (Doubles (if (i =? 0)%nat then x0 else ubx)));
    _ ← call (NlpOutSet config dims nlp_out nlp_in i "x" (Doubles x0));
    if (i <? WILLOW_MPC_N)%nat then
      _ ← call (NlpInSet config dims nlp_in i "Ts" (Doubles [WILLOW_MPC_DT]));
      _ ← call (CostModelSet config dims nlp_in i "scaling" (Doubles [WILLOW_MPC_DT]));
      _ ← call (ConstraintsModelSet config dims nlp_in nlp_out i "idxbu" (Ints idxbu));
      _ ← call (ConstraintsModelSet config dims nlp_in nlp_out i "lbu" (Doubles lbu));
      _ ← call (ConstraintsModelSet config dims nlp_in nlp_out i "ubu" (Doubles ubu));
      call (NlpOutSet config dims nlp_out nlp_in i "u" (Doubles u0))
    else mret tt);
  call (ConstraintsModelSet config dims nlp_in nlp_out 0 "idxbxe" (Ints idxbx)).

(** The options (lines 163-173). *)
Definition set_options (config opts : Z) : acados unit :=
  _ ← call (OptsSet config opts "qp_hpipm_mode" (Text "ROBUST"));
  _ ← call (OptsSet config opts "levenberg_marquardt" (Number (decimal 1 4)));
  _ ← call (OptsSet config opts "qp_iter_max" (Count 50));
  for_each stages (fun i =>
    _ ← call (OptsSetAtStage config opts i "dynamics_num_stages" (Count 4));
    call (OptsSetAtStage config opts i "dynamics_num_steps" (Count 5))).

Definition willow_mpc_acados_create (cap : option willow_mpc_solver_capsule) : acados (option willow_mpc_solver_capsule * Z) :=
  match cap with
  | None => mret (cap, -1)
  | Some c =>
      if negb (nlp_solver_plan c =? 0) then mret (cap, -1)
      else
        plan ← call (CreatePlan WILLOW_MPC_N);
        if plan =? 0 then bad_access
        else
          config ← call (CreateConfig plan the_plan);
          dims ← call (CreateDims config);
          _ ← set_dimensions config dims;
          nlp_in ← call (CreateIn config dims);
          nlp_out ← call (CreateOut config dims);
          _ ← set_functions config dims nlp_in;
          _ ← set_problem config dims nlp_in nlp_out;
          opts ← call (CreateOpts config dims);
          _ ← set_options config opts;
          solver ← call (CreateSolver config dims opts nlp_in);
          status ← call (Precompute solver nlp_in nlp_out);
          mret (Some {| nlp_in := nlp_in; nlp_out := nlp_out; nlp_solver := solver; nlp_opts := opts;
                        nlp_solver_plan := plan; nlp_config := config; nlp_dims := dims;
                        initialized := (status =? 0) |}, status)
  end.

Definition willow_mpc_acados_solve (cap : option willow_mpc_solver_capsule) : acados Z :=
  match cap with
  | None => mret (-1)
  | Some c => if negb (initialized c) then mret (-1) else call (NlpSolve (nlp_solver c) (nlp_in c) (nlp_out c))
  end.

Definition willow_mpc_acados_free (cap : option willow_mpc_solver_capsule) : acados (option willow_mpc_solver_capsule * Z) :=
  match cap with
  | None => mret (cap, 0)
  | Some c =>
      _ ← destroy_object Nlp_solver (nlp_solver c);
      _ ← destroy_object Nlp_opts (nlp_opts c);
      _ ← destroy_object Nlp_in (nlp_in c);
      _ ← destroy_object Nlp_out (nlp_out c);
      _ ← destroy_object Nlp_dims (nlp_dims c);
      _ ← destroy_object Nlp_config (nlp_config c);
      _ ← destroy_object Nlp_plan (nlp_solver_plan c);
      _ ← for_each stages (fun i =>
        _ ← call (FreeFunction (expl_ode_fun i));
        _ ← call (FreeFunction (expl_vde_for i));
        _ ← call (FreeFunction (expl_vde_adj i));
        _ ← call (FreeFunction (cost_y_fun i));
        _ ← call (FreeFunction (cost_y_fun_jac_ut_xt i));
        call (FreeFunction (cost_y_hess_at i)));
      _ ← call (FreeFunction cost_y_e_fun);
      _ ← call (FreeFunction cost_y_e_fun_jac_ut_xt);
      _ ← call (FreeFunction cost_y_e_hess);
      mret (Some capsule0, 0)
  end.

(** [willow_mpc_acados_gravity], in the program's doubles with a sine and a cosine of
    the C library. *)
Section gravity.
Context (sin cos : double -> double).
Definition willow_mpc_acados_gravity (x gravity : list double) : option (Z * list double) :=
  match call_gravity (O:=double_ops sin cos) x gravity with
  | Some [Some g] => Some (0, g)
  | _ => None
  end.

(** ** The wrapper's calls, answered by the capsule *)

Definition with_capsule {R} (cap : option willow_mpc_solver_capsule) (f : willow_mpc_solver_capsule -> acados R) :
    acados (option willow_mpc_solver_capsule * R) :=
  match cap with None => bad_access | Some c => r ← f c; mret (cap, r) end.

Definition answer_ocp {R} (c : ocp_call R) (cap : option willow_mpc_solver_capsule) :
    acados (option willow_mpc_solver_capsule * R) :=
  match c in ocp_call R return acados (option willow_mpc_solver_capsule * R) with
  | CreateCapsule => new ← willow_mpc_acados_create_capsule; mret (new, match new with Some _ => true | None => false end)
  | AcadosCreate => willow_mpc_acados_create cap
  | AcadosFree => '(cap, _) ← willow_mpc_acados_free cap; mret (cap, tt)
  | FreeCapsule => _ ← willow_mpc_acados_free_capsule cap; mret (None, tt)
  | Gravity x =>
      match willow_mpc_acados_gravity x (repeat (of_Z 0) WILLOW_MPC_NU) with
      | Some r => mret (cap, r)
      | None => bad_access
      end
  | ConstraintsSet stage field v => with_capsule cap (fun c =>
      call (ConstraintsModelSet (nlp_config c) (nlp_dims c) (nlp_in c) (nlp_out c) stage field (Doubles v)))
  | OutSet stage field v => with_capsule cap (fun c =>
      call (NlpOutSet (nlp_config c) (nlp_dims c) (nlp_out c) (nlp_in c) stage field (Doubles v)))
  | OutGet stage field => with_capsule cap (fun c =>
      call (NlpOutGet (nlp_config c) (nlp_dims c) (nlp_out c) stage field))
  | CostSet stage y => with_capsule cap (fun c =>
      call (CostModelSet (nlp_config c) (nlp_dims c) (nlp_in c) stage "yref" (Doubles y)))
  | AcadosSolve => status ← willow_mpc_acados_solve cap; mret (cap, status)
  | ResetQpMemory => with_capsule cap (fun c => call (ResetQp (nlp_solver c) (nlp_in c) (nlp_out c)))
  end.

Fixpoint answered_by {A} (p : prog ocp_call A) (cap : option willow_mpc_solver_capsule) :
    acados (option willow_mpc_solver_capsule * A) :=
  match p with
  | Ret a => mret (cap, a)
  | Call c k => '(cap, r) ← answer_ocp c cap; answered_by (k r) cap
  end.

(** The life of a wrapper: it is made, used in any way, and destroyed. *)
Inductive solver_operation :=
| SetVelocityLimit (limit : double)
| HoldPosition (q : list Z)
| Solve (q dq T : list Z)
| Predict (q dq T : list Z) (out : list (MPCJointState (F:=double)))
| ResetWarmStart.
Definition ignore {A} (p : solver A) : solver unit := fun s => '(s, _) ← p s; mret (s, inr tt).
Definition operate (o : solver_operation) : solver unit :=
  match o with
  | SetVelocityLimit limit => ignore (setVelocityLimit limit)
  | HoldPosition q => ignore (holdPosition q)
  | Solve q dq T => ignore (mpc_solve q dq T)
  | Predict q dq T out => ignore (predict q dq T out)
  | ResetWarmStart => ignore resetWarmStart
  end.
Fixpoint operate_all (l : list solver_operation) : solver unit :=
  match l with [] => mret tt | o :: l => _ ← operate o; operate_all l end.
Definition wrapper_life (c : MPCConfig) (l : list solver_operation) : prog ocp_call unit :=
  made ← new_solver c;
  match made with
  | inl _ => mret tt
  | inr s => _ ← operate_all l s; destroy
  end.
Definition solver_life (c : MPCConfig) (l : list solver_operation) : acados (option willow_mpc_solver_capsule * unit) :=
  answered_by (wrapper_life c l) None.
End gravity.

(** ** What acados has been given

    The ledger of a run: the objects of acados that are live, with their pointers,
    the function objects, whether the capsule is allocated, the number of stages
    and the dimensions that were set.  [watch] says whether a call is in order and
    how it changes the ledger:
    - an object is made from live ones, when there is none of its kind;
    - every pointer of a call is that of a live object of its kind;
    - an array has the elements that the dimensions ask for at its stage, which is
      one of the horizon, and indices into a state or a control are inside it;
    - a function object that is attached is live, and the generated function behind
      it has the shapes that its place asks for;
    - an object is destroyed once, when nothing made from it is live, a function
      object is freed once, when nothing can call it, and the capsule is freed
      when nothing is left. *)

Record ledger := {
  l_capsule : bool;
  l_stages : nat;
  l_dims : list (string * nat * Z);
  l_objects : list (acados_object * Z);
  l_functions : list external_function
}.
Definition empty_ledger : ledger :=
  {| l_capsule := false; l_stages := 0; l_dims := []; l_objects := []; l_functions := [] |}.

Definition same_object (a b : acados_object) : bool :=
  match a, b with
  | Nlp_plan, Nlp_plan | Nlp_config, Nlp_config | Nlp_dims, Nlp_dims | Nlp_in, Nlp_in | Nlp_out, Nlp_out | Nlp_opts, Nlp_opts | Nlp_solver, Nlp_solver => true
  | _, _ => false
  end.
Definition same_function (f g : external_function) : bool :=
  match f, g with
  | expl_ode_fun i, expl_ode_fun j | expl_vde_for i, expl_vde_for j | expl_vde_adj i, expl_vde_adj j
  | cost_y_fun i, cost_y_fun j | cost_y_fun_jac_ut_xt i, cost_y_fun_jac_ut_xt j
  | cost_y_hess_at i, cost_y_hess_at j => (i =? j)%nat
  | cost_y_e_fun, cost_y_e_fun | cost_y_e_fun_jac_ut_xt, cost_y_e_fun_jac_ut_xt | cost_y_e_hess, cost_y_e_hess => true
  | _, _ => false
  end.
Definition live (l : list (acados_object * Z)) (o : acados_object) : bool := existsb (fun '(o', _) => same_object o o') l.
Definition holds (l : list (acados_object * Z)) (o : acados_object) (p : Z) : bool :=
  existsb (fun '(o', p') => same_object o o' && (p =? p')) l.
Definition has_function (l : list external_function) (f : external_function) : bool := existsb (same_function f) l.

(** Zero until it is set. *)
Definition dim (d : list (string * nat * Z)) (field : string) (stage : nat) : Z :=
  match List.find (fun '(f, i, _) => String.eqb field f && (stage =? i)%nat) d with Some (_, n) => n | None => 0 end.

(** How many elements acados reads or writes, by its documentation. *)
Definition field_size (d : list (string * nat * Z)) (field : string) (i : nat) : option Z :=
  if String.eqb field "W" then Some (dim d "ny" i * dim d "ny" i)
  else if String.eqb field "yref" then Some (dim d "ny" i)
  else if String.eqb field "x" then Some (dim d "nx" i)
  else if String.eqb field "u" then Some (dim d "nu" i)
  else if String.eqb field "idxbx" || String.eqb field "lbx" || String.eqb field "ubx" then Some (dim d "nbx" i)
  else if String.eqb field "idxbu" || String.eqb field "lbu" || String.eqb field "ubu" then Some (dim d "nbu" i)
  else if String.eqb field "idxbxe" then Some (dim d "nbxe" i)
  else if String.eqb field "Ts" || String.eqb field "scaling" then Some 1
  else None.
Definition index_bound (d : list (string * nat * Z)) (field : string) (i : nat) : Z :=
  if String.eqb field "idxbx" then dim d "nx" i
  else if String.eqb field "idxbu" then dim d "nu" i
  else if String.eqb field "idxbxe" then dim d "nbx" i
  else 0.
Definition long_enough (stages : nat) (d : list (string * nat * Z)) (i : nat) (field : string) (n : nat) : bool :=
  (i <=? stages)%nat && match field_size d field i with Some size => size <=? Z.of_nat n | None => false end.
Definition value_fits (stages : nat) (d : list (string * nat * Z)) (i : nat) (field : string) (v : value) : bool :=
  match v with
  | Doubles l => long_enough stages d i field (length l)
  | Ints l => long_enough stages d i field (length l) && forallb (fun k => (0 <=? k) && (k <? index_bound d field i)) l
  end.

(** The rows and columns of an argument or result; any array that holds nothing has
    the shape of any other. *)
Definition shape_is (shape : list Z) (rows columns : Z) : bool :=
  let r := nth 0 shape 0 in let c := nth 1 shape 0 in
  ((r =? rows) && (c =? columns)) || ((r * c =? 0) && (rows * columns =? 0)).
Fixpoint shapes_are (shapes : list (list Z)) (expected : list (Z * Z)) : bool :=
  match shapes, expected with
  | [], [] => true
  | s :: shapes, (r, c) :: expected => shape_is s r c && shapes_are shapes expected
  | _, _ => false
  end.

(** The arguments and results that acados calls a function with, by its
    documentation: a dynamic model has the state, seeds, the controls and
    parameters, a cost has the state, the controls, the algebraic variables, seeds,
    the time and parameters. *)
Definition expected_shapes (p : part) (field : string) (nx nu ny np : Z) : option (list (Z * Z) * list (Z * Z)) :=
  match p with
  | Dynamics =>
      if String.eqb field "expl_ode_fun" then Some ([(nx, 1); (nu, 1); (np, 1)], [(nx, 1)])
      else if String.eqb field "expl_vde_forw" then
        Some ([(nx, 1); (nx, nx); (nx, nu); (nu, 1); (np, 1)], [(nx, 1); (nx, nx); (nx, nu)])
      else if String.eqb field "expl_vde_adj" then Some ([(nx, 1); (nx, 1); (nu, 1); (np, 1)], [(nx + nu, 1)])
      else None
  | Cost =>
      if String.eqb field "nls_y_fun" then Some ([(nx, 1); (nu, 1); (0, 1); (0, 1); (np, 1)], [(ny, 1)])
      else if String.eqb field "nls_y_fun_jac" then
        Some ([(nx, 1); (nu, 1); (0, 1); (0, 1); (np, 1)], [(ny, 1); (nu + nx, ny); (ny, 0)])
      else if String.eqb field "nls_y_hess" then
        Some ([(nx, 1); (nu, 1); (0, 1); (ny, 1); (0, 1); (np, 1)], [(nu + nx, nu + nx)])
      else None
  | Constraints => None
  end.
Definition function_fits (stages : nat) (d : list (string * nat * Z)) (p : part) (i : nat) (field : string) (f : external_function) : bool :=
  (i <=? stages)%nat &&
  match expected_shapes p field (dim d "nx" i) (dim d "nu" i) (dim d "ny" i) (dim d "np" i) with
  | Some (args, res) =>
      shapes_are (f_sparsity_in (generated_function f).2) args && shapes_are (f_sparsity_out (generated_function f).2) res
  | None => false
  end.

(** What an object was made from. *)
Definition made_from (o : acados_object) : list acados_object :=
  match o with
  | Nlp_plan => [] | Nlp_config => [Nlp_plan] | Nlp_dims => [Nlp_config]
  | Nlp_in | Nlp_out | Nlp_opts => [Nlp_config; Nlp_dims]
  | Nlp_solver => [Nlp_config; Nlp_dims; Nlp_opts; Nlp_in]
  end.
Definition needed (l : list (acados_object * Z)) (o : acados_object) : bool :=
  existsb (fun '(o', _) => existsb (same_object o) (made_from o')) l.
Definition remove (o : acados_object) (l : list (acados_object * Z)) : list (acados_object * Z) :=
  List.filter (fun '(o', _) => negb (same_object o o')) l.

Definition with_objects (f : list (acados_object * Z) -> list (acados_object * Z)) (m : ledger) : ledger :=
  {| l_capsule := l_capsule m; l_stages := l_stages m; l_dims := l_dims m; l_objects := f (l_objects m);
     l_functions := l_functions m |}.
Definition with_functions (f : list external_function -> list external_function) (m : ledger) : ledger :=
  {| l_capsule := l_capsule m; l_stages := l_stages m; l_dims := l_dims m; l_objects := l_objects m;
     l_functions := f (l_functions m) |}.
Definition with_dims (f : list (string * nat * Z) -> list (string * nat * Z)) (m : ledger) : ledger :=
  {| l_capsule := l_capsule m; l_stages := l_stages m; l_dims := f (l_dims m); l_objects := l_objects m;
     l_functions := l_functions m |}.
Definition with_capsule_at (b : bool) (n : nat) (m : ledger) : ledger :=
  {| l_capsule := b; l_stages := n; l_dims := l_dims m; l_objects := l_objects m; l_functions := l_functions m |}.

Definition all_held (m : ledger) (l : list (acados_object * Z)) : bool :=
  forallb (fun '(o, p) => holds (l_objects m) o p) l.
Definition when (b : bool) (m : ledger) : option ledger := if b then Some m else None.
Definition make (m : ledger) (o : acados_object) (from : list Z) (p : Z) : option ledger :=
  when (l_capsule m && negb (live (l_objects m) o) && all_held m (zip (made_from o) from)) (with_objects (cons (o, p)) m).

Definition watch {R} (m : ledger) (c : acados_call R) : R -> option ledger :=
  match c in acados_call R return R -> option ledger with
  | Calloc => fun made => when (negb (l_capsule m)) (with_capsule_at made (l_stages m) m)
  | FreeMemory => fun _ =>
      when (l_capsule m && match l_objects m, l_functions m with [], [] => true | _, _ => false end) empty_ledger
  | CreatePlan n => fun p => make (with_capsule_at (l_capsule m) n m) Nlp_plan [] p
  | CreateConfig plan _ => fun p => make m Nlp_config [plan] p
  | CreateDims config => fun p => make (with_dims (fun _ => []) m) Nlp_dims [config] p
  | CreateIn config dims => fun p => make m Nlp_in [config; dims] p
  | CreateOut config dims => fun p => make m Nlp_out [config; dims] p
  | CreateOpts config dims => fun p => make m Nlp_opts [config; dims] p
  | CreateSolver config dims opts nlp_in => fun p => make m Nlp_solver [config; dims; opts; nlp_in] p
  | CreateFunction f _ => fun _ => when (l_capsule m && negb (has_function (l_functions m) f)) (with_functions (cons f) m)
  | SetOptVars config dims field v => fun _ =>
      when (all_held m [(Nlp_config, config); (Nlp_dims, dims)] && (l_stages m <? length v)%nat)
        (with_dims (app (imap (fun i n => (field, i, n)) v)) m)
  | SetDim _ config dims i field n => fun _ =>
      when (all_held m [(Nlp_config, config); (Nlp_dims, dims)] && (i <=? l_stages m)%nat) (with_dims (cons (field, i, n)) m)
  | SetFunction p config dims nlp_in i field f => fun _ =>
      when (all_held m [(Nlp_config, config); (Nlp_dims, dims); (Nlp_in, nlp_in)] && has_function (l_functions m) f &&
            function_fits (l_stages m) (l_dims m) p i field f) m
  | CostModelSet config dims nlp_in i field v | NlpInSet config dims nlp_in i field v => fun _ =>
      when (all_held m [(Nlp_config, config); (Nlp_dims, dims); (Nlp_in, nlp_in)] && value_fits (l_stages m) (l_dims m) i field v) m
  | ConstraintsModelSet config dims nlp_in nlp_out i field v | NlpOutSet config dims nlp_out nlp_in i field v => fun _ =>
      when (all_held m [(Nlp_config, config); (Nlp_dims, dims); (Nlp_in, nlp_in); (Nlp_out, nlp_out)] &&
            value_fits (l_stages m) (l_dims m) i field v) m
  | NlpOutGet config dims nlp_out i field => fun v =>
      when (all_held m [(Nlp_config, config); (Nlp_dims, dims); (Nlp_out, nlp_out)] && long_enough (l_stages m) (l_dims m) i field (length v)) m
  | OptsSet config opts _ _ => fun _ => when (all_held m [(Nlp_config, config); (Nlp_opts, opts)]) m
  | OptsSetAtStage config opts i _ _ => fun _ =>
      when (all_held m [(Nlp_config, config); (Nlp_opts, opts)] && (i <? l_stages m)%nat) m
  | Precompute solver nlp_in nlp_out | NlpSolve solver nlp_in nlp_out => fun _ =>
      when (all_held m [(Nlp_solver, solver); (Nlp_in, nlp_in); (Nlp_out, nlp_out)]) m
  | ResetQp solver nlp_in nlp_out => fun _ =>
      when (all_held m [(Nlp_solver, solver); (Nlp_in, nlp_in); (Nlp_out, nlp_out)]) m
  | Destroy o p => fun _ => when (holds (l_objects m) o p && negb (needed (l_objects m) o)) (with_objects (remove o) m)
  | FreeFunction f => fun _ =>
      when (has_function (l_functions m) f && negb (live (l_objects m) Nlp_in) && negb (live (l_objects m) Nlp_solver))
        (with_functions (List.filter (fun g => negb (same_function f g))) m)
  | BadAccess => fun _ => None
  end.

(** What acados answers, by its documentation: it makes an object or does not
    return, and a field that is read has the elements of its dimension. *)
Definition answers {R} (m : ledger) (c : acados_call R) : R -> Prop :=
  match c in acados_call R return R -> Prop with
  | CreatePlan _ | CreateConfig _ _ | CreateDims _ | CreateIn _ _ | CreateOut _ _ | CreateOpts _ _ | CreateSolver _ _ _ _ =>
      fun p => p <> 0
  | NlpOutGet _ _ _ i field => fun v => match field_size (l_dims m) field i with Some size => size = Z.of_nat (length v) | None => True end
  | _ => fun _ => True
  end.

(** A run in order: where acados answers as documented, each call is in order, up
    to the ledger that is left. *)
Fixpoint in_order (m : ledger) (l : list (event acados_call)) (last : ledger) : Prop :=
  match l with
  | [] => m = last
  | Event c r :: l => answers m c r -> exists m', watch m c r = Some m' /\ in_order m' l last
  end.

(** ** Programs in order *)

Fixpoint guarded {A} (m : ledger) (p : acados A) (post : ledger -> A -> Prop) : Prop :=
  match p with
  | Ret a => post m a
  | Call c k => forall r, answers m c r -> exists m', watch m c r = Some m' /\ guarded m' (k r) post
  end.

Lemma guarded_bind {A B} m (p : acados A) (f : A -> acados B) post :
  guarded m p (fun m' a => guarded m' (f a) post) -> guarded m (p ≫= f) post.
Proof.
  revert m. induction p as [a|R c k IH]; intros m Hp; [done|]. intros r Hr.
  destruct (Hp r Hr) as (m' & Hw & Hk). exists m'. split; [done|]. by apply IH.
Qed.

Lemma guarded_mono {A} m (p : acados A) (post post' : ledger -> A -> Prop) :
  guarded m p post -> (forall m' a, post m' a -> post' m' a) -> guarded m p post'.
Proof.
  revert m. induction p as [a|R c k IH]; intros m Hp Hi; [by apply Hi|]. intros r Hr.
  destruct (Hp r Hr) as (m' & Hw & Hk). exists m'. split; [done|]. by apply (IH r).
Qed.

Lemma guarded_call {R A} m (c : acados_call R) (f : R -> acados A) post :
  (forall r, answers m c r -> exists m', watch m c r = Some m' /\ guarded m' (f r) post) ->
  guarded m (call c ≫= f) post.
Proof. done. Qed.
Lemma guarded_last {R} m (c : acados_call R) (post : ledger -> R -> Prop) :
  (forall r, answers m c r -> exists m', watch m c r = Some m' /\ post m' r) -> guarded m (call c) post.
Proof. done. Qed.

Lemma guarded_for_each {A} m (l : list A) body :
  (forall x, In x l -> guarded m (body x) (fun m' _ => m' = m)) -> guarded m (for_each l body) (fun m' _ => m' = m).
Proof.
  induction l as [|x l IH]; intros Hb; [done|]. cbn [for_each]. apply guarded_bind.
  eapply guarded_mono; [apply Hb; by left|]. intros m' [] ->. apply IH. intros y Hy. apply Hb. by right.
Qed.

Lemma guarded_in_order {A} m (p : acados A) l a last :
  guarded m p (fun m' _ => m' = last) -> runs p l a -> in_order m l last.
Proof.
  revert m l. induction p as [b|R c k IH]; intros m l Hp; [by intros [-> ->]|].
  destruct l as [|ev l]; [done|]. intros (r & -> & Hr) Hans. destruct (Hp r Hans) as (m' & Hw & Hk).
  exists m'. split; [done|]. by apply (IH r).
Qed.

(** *** Making the solver *)

Definition willow_dims : list (string * nat * Z) :=
  rev (flat_map (fun i => [("ny", i, if (i <? 5)%nat then 15 else 9); ("nbx", i, 12);
                           ("nbu", i, if (i <? 5)%nat then 6 else 0); ("nbxe", i, if (i =? 0)%nat then 12 else 0)]%string)
         (seq 0 6)) ++
  flat_map (fun '(field, n, last) => map (fun i => (field, i, if (i <? 5)%nat then n else last)) (seq 0 6))
    [("np", 0, 0); ("ns", 0, 0); ("nz", 0, 0); ("nu", 6, 0); ("nx", 12, 12)]%string.
Definition stage_functions (i : nat) : list external_function :=
  [expl_ode_fun i; expl_vde_for i; expl_vde_adj i; cost_y_fun i; cost_y_fun_jac_ut_xt i; cost_y_hess_at i].
Definition all_functions : list external_function :=
  rev (flat_map stage_functions (seq 0 5) ++ [cost_y_e_fun; cost_y_e_fun_jac_ut_xt; cost_y_e_hess]).

(** One call: the objects it names are held, the rest is computed. *)
Ltac compute_checks :=
  repeat match goal with
    | |- context [value_fits ?a ?b ?c ?d ?e] => replace (value_fits a b c d e) with true by (vm_compute; reflexivity)
    | |- context [function_fits ?a ?b ?c ?d ?e ?f] => replace (function_fits a b c d e f) with true by (vm_compute; reflexivity)
    | |- context [has_function ?a ?b] => let v := eval vm_compute in (has_function a b) in change (has_function a b) with v
    end.
Ltac in_turn :=
  first [apply guarded_call | apply guarded_last]; intros ? _; eexists; split;
  [ unfold watch; cbn [all_held forallb l_objects l_dims l_stages l_functions l_capsule];
    repeat match goal with H : holds _ _ _ = true |- _ => rewrite H end; compute_checks; cbn [andb when negb]; reflexivity
  | cbv beta delta [with_dims with_functions] iota; cbn [l_objects l_dims l_stages l_functions l_capsule] ].

Section made.
Context (objects : list (acados_object * Z)) (functions : list external_function).
Context (config dims i o : Z).
Context (Hconfig : holds objects Nlp_config config = true) (Hdims : holds objects Nlp_dims dims = true).
Definition ledger_at (d : list (string * nat * Z)) (f : list external_function) : ledger :=
  {| l_capsule := true; l_stages := 5; l_dims := d; l_objects := objects; l_functions := f |}.

Lemma dimensions_guarded :
  guarded (ledger_at [] functions) (set_dimensions config dims) (fun m _ => m = ledger_at willow_dims functions).
Proof.
  unfold set_dimensions, ledger_at. do 5 in_turn. cbn [for_each all_stages seq WILLOW_MPC_N].
  do 6 (apply guarded_bind; do 4 in_turn). cbn. reflexivity.
Qed.

Context (Hin : holds objects Nlp_in i = true).
Lemma functions_guarded :
  guarded (ledger_at willow_dims []) (set_functions config dims i) (fun m _ => m = ledger_at willow_dims all_functions).
Proof.
  unfold set_functions, ledger_at, CREATE_CASADI. apply guarded_bind. cbn [for_each stages seq WILLOW_MPC_N].
  do 5 (apply guarded_bind; do 12 in_turn). do 6 in_turn. reflexivity.
Qed.

Context (Hout : holds objects Nlp_out o = true).
Lemma problem_guarded :
  guarded (ledger_at willow_dims functions) (set_problem config dims i o) (fun m _ => m = ledger_at willow_dims functions).
Proof.
  unfold set_problem, ledger_at. apply guarded_bind. eapply guarded_mono; [apply guarded_for_each|].
  - intros k Hk. repeat (destruct Hk as [<-|Hk]; [cbn [Nat.ltb Nat.leb Nat.eqb WILLOW_MPC_N]; repeat in_turn; reflexivity|]). destruct Hk.
  - intros m [] ->. in_turn. reflexivity.
Qed.
End made.

(** The ledger of a capsule that was made. *)
Definition objects_of (c : willow_mpc_solver_capsule) : list (acados_object * Z) :=
  [(Nlp_solver, nlp_solver c); (Nlp_opts, nlp_opts c); (Nlp_out, nlp_out c); (Nlp_in, nlp_in c);
   (Nlp_dims, nlp_dims c); (Nlp_config, nlp_config c); (Nlp_plan, nlp_solver_plan c)].
Definition full_ledger (c : willow_mpc_solver_capsule) : ledger := ledger_at (objects_of c) willow_dims all_functions.
Definition pointers_set (c : willow_mpc_solver_capsule) : Prop :=
  Forall (fun '(_, p) => p <> 0) (objects_of c).

Lemma held_first l o p : holds ((o, p) :: l) o p = true.
Proof. cbn. rewrite Z.eqb_refl. by destruct o. Qed.
Lemma held_later l o p o' p' : holds l o p = true -> holds ((o', p') :: l) o p = true.
Proof. unfold holds. cbn [existsb]. intros ->. by rewrite orb_true_r. Qed.
Create HintDb held.
#[export] Hint Resolve held_first held_later : held.

Lemma full_holds c : Forall (fun '(o, p) => holds (objects_of c) o p = true) (objects_of c).
Proof. unfold objects_of. repeat constructor; auto 10 with held. Qed.

(** One call that makes an object. *)
Ltac made_from_held :=
  apply guarded_call; intros ? ?; eexists; split;
  [ unfold watch, make; cbn [l_capsule l_objects live existsb same_object orb negb all_held made_from zip zip_with forallb
                             with_capsule_at with_objects with_dims];
    repeat match goal with |- context [holds ?a ?b ?c] => replace (holds a b c) with true by (symmetry; auto 10 with held) end;
    cbn [andb when]; reflexivity
  | cbv beta delta [with_objects with_dims with_capsule_at] iota; cbn [l_objects l_dims l_stages l_functions l_capsule] ].
Ltac by_lemma H :=
  apply guarded_bind; eapply guarded_mono; [eapply H; auto 10 with held|]; intros ? [] ->; cbv beta delta [ledger_at] iota.

Lemma options_guarded objects functions config opts :
  holds objects Nlp_config config = true -> holds objects Nlp_opts opts = true ->
  guarded (ledger_at objects willow_dims functions) (set_options config opts) (fun m _ => m = ledger_at objects willow_dims functions).
Proof.
  intros Hc Ho. unfold set_options, ledger_at. do 3 in_turn. apply guarded_for_each. intros k Hk.
  repeat (destruct Hk as [<-|Hk]; [repeat in_turn; reflexivity|]). destruct Hk.
Qed.

Lemma create_guarded :
  guarded {| l_capsule := true; l_stages := 0; l_dims := []; l_objects := []; l_functions := [] |}
    (willow_mpc_acados_create (Some capsule0))
    (fun m '(cap, status) => exists c, cap = Some c /\ m = full_ledger c /\ pointers_set c /\ initialized c = (status =? 0)).
Proof.
  unfold willow_mpc_acados_create. cbn [nlp_solver_plan capsule0 Z.eqb negb].
  made_from_held. destruct (Z.eqb_spec r 0) as [->|_]; [done|].
  do 2 made_from_held. by_lemma dimensions_guarded.
  do 2 made_from_held. by_lemma functions_guarded. by_lemma problem_guarded.
  made_from_held. apply guarded_bind. eapply guarded_mono; [apply options_guarded; auto 10 with held|]. intros ? [] ->.
  cbv beta delta [ledger_at] iota. made_from_held. apply guarded_call. intros status _. eexists. split.
  { unfold watch. cbn [l_objects all_held forallb].
    repeat match goal with |- context [holds ?a ?b ?c] => replace (holds a b c) with true by (symmetry; auto 10 with held) end.
    reflexivity. }
  eexists. split; [reflexivity|]. split; [reflexivity|]. split; [|reflexivity]. unfold pointers_set, objects_of.
  by repeat constructor.
Qed.

(** *** Freeing it *)

Ltac freed :=
  first [apply guarded_call | apply guarded_last]; intros ? _; eexists; split;
  [ unfold watch; cbn [l_functions l_objects];
    match goal with |- context [has_function ?a ?b] => replace (has_function a b) with true by (vm_compute; reflexivity) end;
    cbn [live existsb andb negb when]; reflexivity
  | cbv beta delta [with_functions] iota; cbn [l_objects l_dims l_stages l_functions l_capsule];
    repeat match goal with |- context [List.filter ?f ?l] => let v := eval vm_compute in (List.filter f l) in change (List.filter f l) with v end ].
Ltac destroyed :=
  apply guarded_bind; unfold destroy_object;
  match goal with |- context [(?p =? 0)%Z] => replace (p =? 0) with false by (symmetry; apply Z.eqb_neq; assumption) end;
  apply guarded_last; intros ? _; eexists; split;
  [ unfold watch; cbn [l_objects];
    match goal with |- context [holds ?a ?b ?c] => replace (holds a b c) with true by (symmetry; auto 10 with held) end;
    cbn [needed existsb made_from same_object orb andb negb when]; reflexivity
  | cbv beta delta [with_objects] iota; cbn [l_objects l_dims l_stages l_functions l_capsule remove List.filter same_object negb] ].

Lemma free_guarded c : pointers_set c ->
  guarded (full_ledger c) (willow_mpc_acados_free (Some c))
    (fun m '(cap, _) => cap = Some capsule0 /\ l_capsule m = true /\ l_objects m = [] /\ l_functions m = []).
Proof.
  unfold pointers_set, objects_of. intros Hp. repeat (apply Forall_cons_1 in Hp as [? Hp]).
  unfold willow_mpc_acados_free, full_ledger, ledger_at, objects_of. do 7 destroyed.
  apply guarded_bind. let v := eval vm_compute in all_functions in change all_functions with v.
  cbn [for_each stages seq WILLOW_MPC_N].
  do 5 (apply guarded_bind; do 6 freed). do 3 freed. done.
Qed.

(** ** What the wrapper asks

    A call of the wrapper is in order between the making and the freeing of the
    capsule when its arrays have the elements of their stage; programs that make
    only such calls, whatever is answered, are orderly. *)

Definition ocp_in_order {R} (c : ocp_call R) : bool :=
  match c with
  | Gravity x => (length x =? WILLOW_MPC_NX)%nat
  | ConstraintsSet i field v | OutSet i field v => long_enough 5 willow_dims i field (length v)
  | OutGet i field => (i <=? 5)%nat && match field_size willow_dims field i with Some _ => true | None => false end
  | CostSet i y => long_enough 5 willow_dims i "yref" (length y)
  | AcadosSolve | ResetQpMemory => true
  | CreateCapsule | AcadosCreate | AcadosFree | FreeCapsule => false
  end.
Definition ocp_answers {R} (c : ocp_call R) : R -> Prop :=
  match c in ocp_call R return R -> Prop with
  | Gravity _ => fun r => length (snd r) = WILLOW_MPC_NU
  | OutGet i field => fun v => match field_size willow_dims field i with Some size => size = Z.of_nat (length v) | None => True end
  | _ => fun _ => True
  end.
Fixpoint orderly {A} (p : prog ocp_call A) (post : A -> Prop) : Prop :=
  match p with
  | Ret a => post a
  | Call c k => ocp_in_order c = true /\ forall r, ocp_answers c r -> orderly (k r) post
  end.

Lemma orderly_bind {A B} (p : prog ocp_call A) (f : A -> prog ocp_call B) post :
  orderly p (fun a => orderly (f a) post) -> orderly (p ≫= f) post.
Proof.
  induction p as [a|R c k IH]; intros Hp; [done|]. destruct Hp as [Hc Hk]. split; [done|].
  intros r Hr. by apply IH, Hk.
Qed.
Lemma orderly_mono {A} (p : prog ocp_call A) (post post' : A -> Prop) :
  orderly p post -> (forall a, post a -> post' a) -> orderly p post'.
Proof.
  induction p as [a|R c k IH]; intros Hp Hi; [by apply Hi|]. destruct Hp as [Hc Hk]. split; [done|].
  intros r Hr. by apply IH; [apply Hk|].
Qed.

(** The wrapper keeps a gravity vector of the controls. *)
Definition wrapped {A} (post : A -> Prop) (out : CartesianMPCSolver * (solver_error + A)) : Prop :=
  length (gravity_reference (fst out)) = WILLOW_MPC_NU /\ match snd out with inr a => post a | inl _ => True end.
Definition keeps {A} (p : solver A) (post : A -> Prop) : Prop :=
  forall s, length (gravity_reference s) = WILLOW_MPC_NU -> orderly (p s) (wrapped post).

Lemma kept_bind {A B} (p : solver A) (f : A -> solver B) mid post :
  keeps p mid -> (forall a, mid a -> keeps (f a) post) -> keeps (p ≫= f) post.
Proof.
  intros Hp Hf s Hs.
  change ((p ≫= f) s) with
    (p s ≫= fun out => match snd out with inl e => mret (fst out, inl e) | inr a => f a (fst out) end).
  apply orderly_bind. eapply orderly_mono; [by apply Hp|]. intros [s' [e|a]] [Hs' Ha]; [done|]. by apply (Hf a).
Qed.
Lemma keeps_ret {A} (a : A) (post : A -> Prop) : post a -> keeps (mret a) post.
Proof. intros Ha s Hs. by split. Qed.
Lemma kept_mono {A} (p : solver A) (post post' : A -> Prop) : keeps p post -> (forall a, post a -> post' a) -> keeps p post'.
Proof.
  intros Hp Hi s Hs. eapply orderly_mono; [by apply Hp|]. intros [s' [e|a]] [Hs' Ha]; (split; [done|]); cbn in *; by auto.
Qed.
Lemma keeps_raise {A} e (post : A -> Prop) : keeps (raise e) post.
Proof. by intros s Hs. Qed.
Lemma keeps_ocp {R} (c : ocp_call R) : ocp_in_order c = true -> keeps (ocp c) (ocp_answers c).
Proof. intros Hc s Hs. split; [done|]. intros r Hr. by split. Qed.
Lemma keeps_read {A} (f : CartesianMPCSolver -> A) : keeps (read_s f) (fun _ => True).
Proof. by intros s Hs. Qed.
Lemma keeps_set_status n : keeps (set_status n) (fun _ => True).
Proof. by intros s Hs. Qed.
Lemma keeps_set_warm b : keeps (set_warm b) (fun _ => True).
Proof. by intros s Hs. Qed.
Lemma keeps_set_gravity g : length g = WILLOW_MPC_NU -> keeps (set_gravity g) (fun _ => True).
Proof. by intros Hg s Hs. Qed.
Lemma keeps_for_stages l body :
  (forall i, In i l -> keeps (body i) (fun _ => True)) -> keeps (for_stages l body) (fun _ => True).
Proof.
  induction l as [|i l IH]; intros Hb; [by apply keeps_ret|]. cbn [for_stages]. eapply kept_bind; [apply Hb; by left|].
  intros [] _. apply IH. intros j Hj. apply Hb. by right.
Qed.
Lemma keeps_ignore {A} (p : solver A) post : keeps p post -> keeps (ignore p) (fun _ => True).
Proof.
  intros Hp s Hs. unfold ignore. apply orderly_bind. eapply orderly_mono; [by apply Hp|]. by intros [s' r] [Hs' _].
Qed.

Create HintDb keeps.
#[export] Hint Resolve keeps_raise keeps_read keeps_set_status keeps_set_warm keeps_ret : keeps.

(** The fields by stage. *)
Lemma state_fits i (v : list double) field : (i < 6)%nat -> length v = WILLOW_MPC_NX -> field ∈ ["x"; "lbx"; "ubx"]%string ->
  long_enough 5 willow_dims i field (length v) = true.
Proof.
  intros Hi -> Hf. repeat (apply elem_of_cons in Hf as [->|Hf]; [do 6 (destruct i as [|i]; [by vm_compute|]); lia|]). by apply elem_of_nil in Hf.
Qed.
Lemma controls_fit i (v : list double) : (i < 6)%nat -> length v = WILLOW_MPC_NU ->
  long_enough 5 willow_dims i "u" (length v) = true.
Proof. intros Hi ->. do 6 (destruct i as [|i]; [by vm_compute|]). lia. Qed.
Lemma reference_fits i (v : list double) : (i < 6)%nat -> length v = WILLOW_MPC_NY ->
  long_enough 5 willow_dims i "yref" (length v) = true.
Proof. intros Hi ->. do 6 (destruct i as [|i]; [by vm_compute|]). lia. Qed.
Lemma state_answer i (v : list double) : (i < 6)%nat -> ocp_answers (OutGet i "x") v -> length v = WILLOW_MPC_NX.
Proof. intros Hi Hv. do 6 (destruct i as [|i]; [change (12 = Z.of_nat (length v)) in Hv; unfold WILLOW_MPC_NX; lia|]). lia. Qed.
Lemma controls_answer i (v : list double) : (i < 5)%nat -> ocp_answers (OutGet i "u") v -> length v = WILLOW_MPC_NU.
Proof.
  intros Hi Hv. do 5 (destruct i as [|i]; [change (6 = Z.of_nat (length v)) in Hv; unfold WILLOW_MPC_NU; lia|]). lia.
Qed.

Lemma keeps_set_state i v : (i < 6)%nat -> length v = WILLOW_MPC_NX -> keeps (ocp (OutSet i "x" v)) (fun _ => True).
Proof. intros Hi Hv. eapply kept_mono; [apply keeps_ocp, state_fits; [done..|set_solver]|done]. Qed.
Lemma keeps_set_controls i v : (i < 6)%nat -> length v = WILLOW_MPC_NU -> keeps (ocp (OutSet i "u" v)) (fun _ => True).
Proof. intros Hi Hv. eapply kept_mono; [by apply keeps_ocp, controls_fit|done]. Qed.
Lemma keeps_set_bounds i field v : (i < 6)%nat -> length v = WILLOW_MPC_NX -> field ∈ ["x"; "lbx"; "ubx"]%string ->
  keeps (ocp (ConstraintsSet i field v)) (fun _ => True).
Proof. intros Hi Hv Hf. eapply kept_mono; [by apply keeps_ocp, state_fits|done]. Qed.
Lemma keeps_get_state i : (i < 6)%nat -> keeps (getState i) (fun v => length v = WILLOW_MPC_NX).
Proof.
  intros Hi. eapply kept_mono; [apply keeps_ocp; do 6 (destruct i as [|i]; [done|]); lia|]. intros v. by apply state_answer.
Qed.
Lemma keeps_get_controls i : (i < 5)%nat -> keeps (ocp (OutGet i "u")) (fun v => length v = WILLOW_MPC_NU).
Proof.
  intros Hi. eapply kept_mono; [apply keeps_ocp; do 5 (destruct i as [|i]; [done|]); lia|]. intros v. by apply controls_answer.
Qed.
Lemma keeps_reset : keeps (ocp ResetQpMemory) (fun _ => True).
Proof. by eapply kept_mono; [apply keeps_ocp|]. Qed.

(** *** The wrapper's functions *)

Lemma setInitialState_keeps x : length x = WILLOW_MPC_NX -> keeps (setInitialState x) (fun _ => True).
Proof.
  intros Hx. unfold setInitialState. eapply kept_bind; [apply keeps_ocp; cbn; by rewrite Hx|].
  intros [failed gravity] Hg. cbn in Hg. eapply kept_bind; [by apply keeps_set_gravity|]. intros [] _.
  destruct (negb _); [apply keeps_raise|].
  eapply kept_bind; [apply keeps_set_bounds; [lia|done|set_solver]|]. intros [] _.
  eapply kept_bind; [apply keeps_set_bounds; [lia|done|set_solver]|]. intros [] _.
  eapply kept_bind; [apply keeps_read|]. intros warm _.
  eapply kept_bind; [|intros [] _; apply keeps_set_state; [lia|done]].
  destruct warm; cbn [negb]; apply keeps_for_stages; intros i [Hi0 Hi]%in_seq; cbv [kHorizon Nat.add] in Hi.
  - eapply kept_bind; [apply (keeps_get_state (S i)); lia|]. intros next Hn.
    eapply kept_bind; [apply keeps_set_state; [lia|done]|]. intros [] _.
    destruct (Nat.ltb_spec (S i) kHorizon) as [Hlt|]; [|by apply keeps_ret].
    eapply kept_bind; [apply keeps_get_controls; exact Hlt|]. intros u Hu. apply keeps_set_controls; [lia|done].
  - eapply kept_bind; [apply keeps_set_state; [lia|done]|]. intros [] _.
    destruct (_ <? _)%nat; [|by apply keeps_ret]. apply keeps_set_controls; [lia|].
    unfold clamp_torque. by rewrite length_map, length_seq.
Qed.

Lemma setReference_keeps p : length p = 3%nat -> keeps (setReference p) (fun _ => True).
Proof.
  intros Hp s Hs. unfold setReference. refine (kept_bind _ _ (fun g => length g = WILLOW_MPC_NU) _ _ _ s Hs).
  - intros s' Hs'. by split.
  - intros g Hg. apply keeps_for_stages. intros i [Hi0 Hi]%in_seq. cbv [kHorizon Nat.add] in Hi. eapply kept_mono; [|done].
    apply keeps_ocp. cbn [ocp_in_order]. apply reference_fits; [lia|]. rewrite !length_app, Hp, repeat_length, Hg. done.
Qed.

Lemma resetWarmStart_keeps : keeps resetWarmStart (fun _ => True).
Proof. unfold resetWarmStart. eapply kept_bind; [apply keeps_set_warm|]. intros [] _. apply keeps_reset. Qed.

Lemma traits_solve_keeps : keeps traits_solve (fun _ => True).
Proof.
  unfold traits_solve. eapply kept_bind; [by apply keeps_ocp|]. intros status _.
  eapply kept_bind; [apply keeps_set_warm|]. intros [] _.
  eapply kept_bind; [|intros [] _; by apply keeps_ret]. destruct (negb _); [apply keeps_reset|by apply keeps_ret].
Qed.

Lemma holdPosition_keeps q : keeps (holdPosition q) (fun _ => True).
Proof.
  unfold holdPosition. destruct (negb _); [apply keeps_raise|]. eapply kept_bind; [apply keeps_read|].
  intros c _. by apply keeps_ret.
Qed.

Lemma setVelocityLimit_keeps limit : keeps (setVelocityLimit limit) (fun _ => True).
Proof.
  unfold setVelocityLimit. destruct (_ || _); [apply keeps_raise|]. unfold traits_setVelocityLimit.
  apply keeps_for_stages. intros i [Hi0 Hi]%in_seq. cbv [kHorizon Nat.add] in Hi.
  eapply kept_bind; [apply keeps_set_bounds; [lia|done|set_solver]|]. intros [] _.
  apply keeps_set_bounds; [lia|done|set_solver].
Qed.

Lemma optimal_keeps {A} (f : list double -> A) : keeps (x ← getState 1; mret (f x)) (fun _ => True).
Proof. eapply kept_bind; [apply keeps_get_state; lia|]. intros x _. by apply keeps_ret. Qed.

Lemma mpc_solve_keeps q dq T : length q = 6%nat -> length dq = 6%nat -> length T = 16%nat ->
  keeps (mpc_solve q dq T) (fun _ => True).
Proof.
  intros Hq Hdq HT. unfold mpc_solve. do 3 (destruct (negb _) || destruct (not_homogeneous _); [apply keeps_raise|]).
  eapply kept_bind; [apply setInitialState_keeps; unfold floats; by rewrite length_app, !length_map, Hq, Hdq|]. intros [] _.
  eapply kept_bind; [apply setReference_keeps; unfold floats; by rewrite length_take, length_drop, length_map, HT|]. intros [] _.
  eapply kept_bind; [apply traits_solve_keeps|]. intros status _.
  eapply kept_bind; [apply keeps_set_status|]. intros [] _.
  destruct (negb _); [apply holdPosition_keeps|].
  eapply kept_bind; [apply optimal_keeps|]. intros s_q _. eapply kept_bind; [apply optimal_keeps|]. intros s_dq _.
  destruct (existsb _ _).
  - eapply kept_bind; [apply keeps_set_status|]. intros [] _. eapply kept_bind; [apply resetWarmStart_keeps|].
    intros [] _. apply holdPosition_keeps.
  - eapply kept_bind; [apply keeps_read|]. intros c _. by apply keeps_ret.
Qed.

Lemma predict_stages_keeps l : forall out, Forall (fun i => i < 6)%nat l -> keeps (predict_stages l out) (fun _ => True).
Proof.
  induction l as [|i l IH]; intros out Hl; [by apply keeps_ret|]. apply Forall_cons_1 in Hl as [Hi Hl]. cbn [predict_stages].
  eapply kept_bind; [by apply keeps_get_state|]. intros x _. destruct (knot_joints _ _ _) as [ok k].
  destruct ok; [by apply IH|]. eapply kept_bind; [apply keeps_set_status|]. intros [] _.
  eapply kept_bind; [apply resetWarmStart_keeps|]. intros [] _. by apply keeps_ret.
Qed.

Lemma predict_keeps q dq T out : length q = 6%nat -> length dq = 6%nat -> length T = 16%nat ->
  keeps (predict q dq T out) (fun _ => True).
Proof.
  intros Hq Hdq HT. unfold predict. eapply kept_bind; [by apply mpc_solve_keeps|]. intros _ _.
  eapply kept_bind; [apply keeps_read|]. intros status _. destruct (negb _); [by apply keeps_ret|].
  apply predict_stages_keeps. apply List.Forall_forall. intros i [Hi0 Hi]%in_seq. cbv [kHorizon Nat.add] in Hi. lia.
Qed.

(** What the callers pass: arrays of the arm's joints and a transform. *)
Definition well_formed (o : solver_operation) : Prop :=
  match o with
  | Solve q dq T | Predict q dq T _ => length q = 6%nat /\ length dq = 6%nat /\ length T = 16%nat
  | _ => True
  end.
Lemma operate_all_keeps l : Forall well_formed l -> keeps (operate_all l) (fun _ => True).
Proof.
  induction 1 as [|o l Ho _ IH]; [by apply keeps_ret|]. cbn [operate_all]. eapply kept_bind; [|by intros [] _].
  destruct o; cbn in Ho |- *; (eapply keeps_ignore;
    first [apply setVelocityLimit_keeps | apply holdPosition_keeps | apply resetWarmStart_keeps
          | apply mpc_solve_keeps; apply Ho | apply predict_keeps; apply Ho]).
Qed.

(** ** The wrapper over the capsule *)

Section life.
Context (sin cos : double -> double).

Lemma answered_bind {A B} (p : prog ocp_call A) (f : A -> prog ocp_call B) m cap post :
  guarded m (answered_by sin cos p cap) (fun m' '(cap', a) => guarded m' (answered_by sin cos (f a) cap') post) ->
  guarded m (answered_by sin cos (p ≫= f) cap) post.
Proof.
  revert m cap. induction p as [a|R c k IH]; intros m cap Hp; [done|]. change (Call c k ≫= f) with (Call c (fun r => k r ≫= f)).
  cbn [answered_by] in *. revert Hp. generalize (answer_ocp sin cos c cap). intros q. revert m.
  induction q as [[cap' r]|R' c' k' IHq]; intros m Hp; [by apply IH|]. intros r Hr.
  destruct (Hp r Hr) as (m' & Hw & Hk). exists m'. split; [done|]. by apply IHq.
Qed.

Lemma gravity_answers x : length x = WILLOW_MPC_NX ->
  exists g, willow_mpc_acados_gravity sin cos x (repeat (of_Z 0) WILLOW_MPC_NU) = Some (0, g) /\ length g = WILLOW_MPC_NU.
Proof.
  intros Hx. unfold willow_mpc_acados_gravity, call_gravity.
  destruct (mpc_call (double_ops sin cos) willow_mpc_gravity [x] [repeat (of_Z 0) WILLOW_MPC_NU]) as (out & Hout & Hl);
    [by left|cbn [map]; by rewrite Hx|done|].
  cbn [map] in Hout. rewrite Hout. destruct out as [|g [|]]; try done. exists g. split; [done|]. by injection Hl.
Qed.

(** A call that leaves the ledger as it is. *)
Lemma quiet_call {R A} m (a : acados_call R) (f : R -> acados A) post :
  (forall r, answers m a r -> watch m a r = Some m /\ guarded m (f r) post) -> guarded m (call a ≫= f) post.
Proof. intros Hs. apply guarded_call. intros r Hr. exists m. by apply Hs. Qed.

(** A call of the wrapper, between the making of the solver and its freeing. *)
Lemma answer_guarded {R} (ask : ocp_call R) c : ocp_in_order ask = true ->
  guarded (full_ledger c) (answer_ocp sin cos ask (Some c))
    (fun m '(cap, r) => m = full_ledger c /\ cap = Some c /\ ocp_answers ask r).
Proof.
  intros Ho. pose proof (full_holds c) as Hh. unfold objects_of in Hh at 2. repeat (apply Forall_cons_1 in Hh as [? Hh]). clear Hh.
  destruct ask; try done; cbn [ocp_in_order] in Ho; cbn [answer_ocp];
    try (unfold with_capsule; apply quiet_call; intros r Hr; split; [|by repeat split];
         unfold watch, full_ledger, ledger_at; cbn [all_held forallb l_objects l_dims l_stages value_fits];
         repeat match goal with H : holds _ _ _ = true |- _ => rewrite H end; cbn [andb]; try rewrite Ho; done).
  - apply Nat.eqb_eq in Ho. destruct (gravity_answers x Ho) as (g & -> & Hg). by repeat split.
  - unfold with_capsule. apply quiet_call. intros r Hr. split; [|by repeat split].
    unfold watch, full_ledger, ledger_at. cbn [all_held forallb l_objects l_dims l_stages].
    repeat match goal with H : holds _ _ _ = true |- _ => rewrite H end. change (ocp_answers (OutGet stage field) r) in Hr. cbn [ocp_answers] in Hr. unfold long_enough.
    apply andb_true_iff in Ho as [-> Ho]. destruct (field_size _ _ _); [|done]. by rewrite Hr, Z.leb_refl.
  - unfold willow_mpc_acados_solve. destruct (negb _); [by repeat split|]. apply guarded_bind, guarded_last. intros r _.
    exists (full_ledger c). split; [|by repeat split]. unfold watch, full_ledger, ledger_at. cbn [all_held forallb l_objects].
    by repeat match goal with H : holds _ _ _ = true |- _ => rewrite H end.
Qed.

Lemma answered_guarded {A} (p : prog ocp_call A) c post : orderly p post ->
  guarded (full_ledger c) (answered_by sin cos p (Some c)) (fun m '(cap, a) => m = full_ledger c /\ cap = Some c /\ post a).
Proof.
  induction p as [a|R ask k IH]; intros Hp; [done|]. destruct Hp as [Ho Hk]. cbn [answered_by].
  apply guarded_bind. eapply guarded_mono; [by apply answer_guarded|]. intros m [cap r] (-> & -> & Hr). by apply IH, Hk.
Qed.

Definition empty_run {A} (m : ledger) (out : option willow_mpc_solver_capsule * A) : Prop := m = empty_ledger /\ fst out = None.

Lemma destroy_guarded c : pointers_set c -> guarded (full_ledger c) (answered_by sin cos destroy (Some c)) empty_run.
Proof.
  intros Hp. unfold destroy. apply answered_bind. cbn [call answered_by answer_ocp].
  do 2 apply guarded_bind. eapply guarded_mono; [by apply free_guarded|].
  intros [b n d os fs] [cap z] (-> & Hb & Ho & Hf). cbn in Hb, Ho, Hf. subst. cbn. intros r _. by eexists.
Qed.

Definition made_run {A} (m : ledger) (out : option willow_mpc_solver_capsule * (solver_error + A)) : Prop :=
  match snd out with
  | inl _ => m = empty_ledger /\ fst out = None
  | inr _ => exists c, fst out = Some c /\ m = full_ledger c /\ pointers_set c
  end.

Lemma made_guarded : guarded empty_ledger (answered_by sin cos create None) made_run.
Proof.
  unfold create. apply answered_bind. cbn [call answered_by answer_ocp].
  do 2 apply guarded_bind. unfold willow_mpc_acados_create_capsule. apply guarded_call. intros made _.
  exists (with_capsule_at made 0 empty_ledger). split; [by destruct made|]. destruct made; [|done].
  unfold mret at 1 2, prog_ret. cbn [guarded answered_by negb]. apply answered_bind. cbn [call answered_by answer_ocp].
  apply guarded_bind. eapply guarded_mono; [apply create_guarded|].
  intros m [cap status] (c & -> & -> & Hp & _). cbn [guarded answered_by mret prog_ret]. destruct (negb _); [|by exists c].
  apply answered_bind. eapply guarded_mono; [by apply destroy_guarded|]. by intros m [cap []] [Hm Hc].
Qed.
End life.


(** C30: the solver is used in order.  Whatever is done with a wrapper from its
    construction to its destruction, and whatever acados answers of what it may
    answer: the generated capsule and the wrapper call acados only with live
    objects of the right kind, with arrays as long as the dimensions of their stage
    and indices inside them; every function that is attached has the shapes of its
    place; what was made is destroyed once, in the order that its making asks for,
    also when the solver cannot be made; and nothing is left. *)
Theorem solver_used_in_order sin cos c ops l cap :
  Forall well_formed ops -> runs (solver_life sin cos c ops) l (cap, tt) ->
  in_order empty_ledger l empty_ledger.
Proof.
  intros Hops. apply guarded_in_order.
  apply (guarded_mono _ _ empty_run); [|by intros m a []]. unfold solver_life, wrapper_life. apply answered_bind.
  assert (guarded empty_ledger (answered_by sin cos (new_solver c) None)
    (fun m out => match snd out with
       | inl _ => m = empty_ledger /\ fst out = None
       | inr s => exists c, fst out = Some c /\ m = full_ledger c /\ pointers_set c /\ length (gravity_reference s) = WILLOW_MPC_NU
       end)) as Hnew.
  { unfold new_solver. destruct (negb _); [done|]. apply answered_bind.
    eapply guarded_mono; [apply made_guarded|]. intros m [cap' [e|[]]]; [done|]. intros (c' & Hc & Hm & Hp). by exists c'. }
  eapply guarded_mono; [exact Hnew|]. intros m [cap' [e|s]]; [done|]. cbn [fst snd]. intros (c' & -> & -> & Hp & Hg).
  apply answered_bind. eapply guarded_mono; [apply answered_guarded, operate_all_keeps; [done|exact Hg]|].
  intros m [cap' out] (-> & -> & _). by apply destroy_guarded.
Qed.

(** ** The constants of the capsule and of the wrapper

    The problem was generated with the limits that the wrapper checks: rounded to
    [float], they are the same, and a state at a limit of the capsule, where it is
    a [double], is one that the wrapper accepts. *)
Theorem limits_agree :
  map to_float lbx = kQLower ++ map opp kDqLimit /\
  map to_float ubx = kQUpper ++ kDqLimit /\
  map to_float lbu = map opp kTauLimit /\ map to_float ubu = kTauLimit /\
  to_float WILLOW_MPC_DT = kDt_f /\ WILLOW_MPC_N = kHorizon /\ WILLOW_MPC_NX = kNX /\ WILLOW_MPC_NU = kNU /\
  forallb (fun i => negb (bad_state lbx i) && negb (bad_state ubx i)) (seq 0 kDOF) = true.
Proof. by vm_compute. Qed.

(** ** A sample life

    acados answers with consecutive pointers, zeros and success. *)

Definition sample_answer {R} (n : Z) (c : acados_call R) : option R :=
  match c in acados_call R return option R with
  | Calloc => Some true
  | CreatePlan _ | CreateConfig _ _ | CreateDims _ | CreateIn _ _ | CreateOut _ _ | CreateOpts _ _ | CreateSolver _ _ _ _ => Some n
  | NlpOutGet _ _ _ _ field => Some (if String.eqb field "x" then x0 else u0)
  | Precompute _ _ _ | NlpSolve _ _ _ => Some 0
  | BadAccess => None
  | CreateFunction _ _ | SetOptVars _ _ _ _ | SetDim _ _ _ _ _ _ | SetFunction _ _ _ _ _ _ _ | CostModelSet _ _ _ _ _ _
  | ConstraintsModelSet _ _ _ _ _ _ _ | NlpInSet _ _ _ _ _ _ | NlpOutSet _ _ _ _ _ _ _ | OptsSet _ _ _ _
  | OptsSetAtStage _ _ _ _ _ | ResetQp _ _ _ | Destroy _ _ | FreeFunction _ | FreeMemory => Some tt
  end.
Fixpoint sample_run {A} (n : Z) (p : acados A) : option (list (event acados_call) * A) :=
  match p with
  | Ret a => Some ([], a)
  | Call c k => r ← sample_answer n c; '(l, a) ← sample_run (n + 1) (k r); Some (Event c r :: l, a)
  end.
Lemma sample_run_runs {A} n (p : acados A) l a : sample_run n p = Some (l, a) -> runs p l a.
Proof.
  revert n l. induction p as [b|R c k IH]; intros n l; cbn; [by intros [= <- <-]|].
  destruct (sample_answer n c) as [r|]; [|done]. cbn. destruct (sample_run (n + 1) (k r)) as [[l' a']|] eqn:He; [|done].
  cbn. intros [= <- <-]. exists r. split; [done|]. by apply (IH r (n + 1)).
Qed.
(** The ledger after a run, whatever was answered. *)
Fixpoint follow (m : ledger) (l : list (event acados_call)) : option ledger :=
  match l with [] => Some m | Event c r :: l => m ← watch m c r; follow m l end.

Definition sample_config : MPCConfig := {| cfg_current_limit_norm := decimal 3 1; cfg_velocity_excitation := float_decimal 12 1 |}.
Definition sample_operations : list solver_operation :=
  let q := repeat 0 6 in let T := [1065353216; 0; 0; 0; 0; 1065353216; 0; 0; 0; 0; 1065353216; 0; 0; 0; 0; 1065353216] in
  [SetVelocityLimit (of_Z 1); Predict q q T (repeat state0 6); Solve q q T; ResetWarmStart; HoldPosition q].
Definition sample_life : option (list (event acados_call) * (option willow_mpc_solver_capsule * unit)) :=
  sample_run 1 (solver_life (fun x => x) (fun _ => of_Z 1) sample_config sample_operations).

Definition sample_trace : list (event acados_call) := match sample_life with Some (l, _) => l | None => [] end.
Lemma sample_life_ends : sample_life = Some (sample_trace, (None, tt)).
Proof. by vm_compute. Qed.

(** More than two hundred calls, all of them answered as documented. *)
Lemma solver_used_in_order_witness :
  in_order empty_ledger sample_trace empty_ledger /\
  follow empty_ledger sample_trace = Some empty_ledger /\ (200 <? length sample_trace)%nat = true.
Proof.
  split; [|by vm_compute].
  apply (solver_used_in_order (fun x => x) (fun _ => of_Z 1) sample_config sample_operations _ None).
  - repeat constructor.
  - apply (sample_run_runs 1), sample_life_ends.
Defined.
