(* ===== verification/MpcAgreement.v ===== *)
(** * The MPC model and the arm

    The solver plans with a model of its own, generated in double precision; the
    program compensates gravity and reports poses with the single precision
    functions of WillowTraits.hpp.  In exact arithmetic on the constants that each
    contains, both describe the same arm. *)

From Stdlib Require Import SpecFloat Reals Lra.
From stdpp Require Import nmap strings.
From S2P Require Import Prelude Arith Casadi Polynomials Symbolic Analyses WillowTraits PantheraTraits ArmModel Kinematics Dynamics MpcModel MpcCost MpcDynamics.

(** ** Polynomials of both *)

(** Downwards, as the examples and the tests pass gravity: [0, 0, -9.81f]. *)
Definition down : R := real_of (float_literal (-981) 2).
Definition p_down : list poly := [p_zero; p_zero; p_const (dyad_of (float_literal (-981) 2))].
Definition arm_gravity : option (list (poly * poly)) :=
  symbolic_call float_literal 6 (g_gravity (generated_of WillowTraits)).1 (symbolic_angles :: map Some (symbolic_constants [p_down])) 6.
Definition arm_flange : option (list (poly * poly)) :=
  symbolic_call float_literal 6 (g_fk (generated_of WillowTraits)).1 [symbolic_angles] 16.
(** The cost where no variable varies. *)
Definition none (s : stage) : nat := nu s + 12.
Definition cost_polynomials (s : stage) : option (list (list (poly * poly))) :=
  symbolic_results decimal_double (varied_joint s (none s)) (cost_y s).1 (symbolic_y s (none s)) [ny s].

Definition gravity_eps : dyad := (1, 19%N).
Definition position_eps : dyad := (1, 24%N).
Definition gravity_agrees : bool :=
  match arm_gravity with
  | Some G => (length (gravity_polynomials willow_mpc_gravity.1) =? 6)%nat && all_below 6 (fun i =>
      p_close gravity_eps (nth i (gravity_polynomials willow_mpc_gravity.1) p_zero) (entry G i).1)
  | None => false
  end.
Definition position_agrees (s : stage) : bool :=
  match arm_flange, cost_polynomials s with
  | Some T, Some [y] => all_below 3 (fun i => p_below 12 (entry T (12 + i)).1 && p_close position_eps (entry y i).1 (entry T (12 + i)).1)
  | _, _ => false
  end.
Lemma gravity_agrees_checked : gravity_agrees = true.
Proof. by vm_compute. Qed.
Lemma position_agrees_checked s : position_agrees s = true.
Proof. destruct s; by vm_compute. Qed.

(** ** The arm of the MPC is the Willow arm *)

Lemma gravity_eps_small : (dyad_val gravity_eps <= 2 / 1000000)%R.
Proof. unfold dyad_val, gravity_eps, pow2. cbn. lra. Qed.
Lemma position_eps_small : (dyad_val position_eps <= 1 / 10000000)%R.
Proof. unfold dyad_val, position_eps, pow2. cbn. lra. Qed.

Lemma gravities_agree q dq g_out gravity_out : length q = 6%nat -> length dq = 6%nat -> length g_out = 6%nat -> length gravity_out = 6%nat ->
  exists G g,
    model_gravity WillowTraits (Some q) (Some [0; 0; down]%R) (Some g_out) = Some (Some G) /\
    call_gravity (O:=mpc_ops) (q ++ dq) gravity_out = Some [Some g] /\
    forall i, (i < 6)%nat -> (Rabs (nth i g 0 - nth i G 0) <= 2 / 1000000)%R.
Proof.
  intros Hq Hdq Hg Hgr. pose proof gravity_agrees_checked as Hc. unfold gravity_agrees in Hc.
  destruct arm_gravity as [G|] eqn:HG; [|done]. apply andb_true_iff in Hc as [Hl%Nat.eqb_eq Hc].
  pose proof (call_values float_literal _ _ _ _ q [] g_out HG Hq Hg) as Harm.
  unfold p_down in Harm. cbn [map] in Harm. rewrite !p_zero_val, p_const_val, dyad_of_val in Harm.
  eexists _, _. split; [by apply one_result_call|]. split; [exact (gravity_values _ q dq gravity_out Hl Hq Hdq Hgr)|].
  intros i Hi. rewrite entry_values, <- (p_zero_val (vars q [])), map_nth.
  etransitivity; [|exact gravity_eps_small]. apply p_close_val; [done|]. exact (all_below_spec _ _ i Hc Hi).
Qed.

Lemma positions_agree s w T_out y_out : length w = (nu s + 12)%nat -> length T_out = 16%nat -> length y_out = ny s ->
  exists T y,
    forwardKinematics WillowTraits (Some (take 6 (state_of s w))) (Some T_out) = Some (Some T) /\
    call_y (O:=mpc_ops) s w y_out = Some [Some y] /\
    forall i, (i < 3)%nat -> (Rabs (nth i y 0 - nth (12 + i) T 0) <= 1 / 10000000)%R.
Proof.
  intros Hw HT Hy. pose proof (position_agrees_checked s) as Hc. unfold position_agrees in Hc.
  set (lambda := replicate (ny s) 0%R). assert (length lambda = ny s) as Hl by apply length_replicate.
  pose proof (length_angles s w lambda Hw Hl) as Hq.
  destruct arm_flange as [T|] eqn:HsT; [|done].
  destruct (cost_polynomials s) as [[|y []]|] eqn:Hsy; [discriminate Hc|..|discriminate Hc]; [|discriminate Hc].
  pose proof (call_values float_literal _ [] 16 T (angles s w) [] T_out HsT Hq HT) as Harm.
  destruct (symbolic_results_sound _ _ _ _ _ _ _ _ _ [y_out] Hsy (y_arguments_stand s w lambda (none s) Hw Hl)) as (fy & Hcy & Hry);
    [cbn; by rewrite Hy|].
  inversion Hry as [|? Y ? ? HY Hn]; subst. inversion Hn; subst. specialize (Hcy 0%R).
  rewrite (y_arguments_at s w lambda (none s) Hw Hl) in Hcy.
  assert (<[none s := 0%R]> w = w) as Hx by (apply list_insert_ge; unfold none; lia). rewrite Hx in Hcy.
  exists (map (fun pd => p_val (vars (angles s w) []) pd.1) T), (map (fun g => g 0%R) Y).
  split; [by apply one_result_call|]. split; [exact Hcy|]. intros i Hi.
  pose proof (proj1 (stands_entry _ _ _ _ _ i 0%R HY)) as Hyi. unfold at_angle in Hyi.
  rewrite (angles_vary s w lambda (none s) Hw Hl), Hx in Hyi. rewrite Hyi, entry_values.
  pose proof (all_below_spec _ _ i Hc Hi) as [Hb Hd]%andb_true_iff.
  rewrite <- (p_below_vars _ (others s w lambda (none s) 0) _ Hq Hb).
  etransitivity; [|exact position_eps_small]. by apply p_close_val.
Qed.

(** C18: the MPC plans for the arm that the program describes, in exact arithmetic on the
    constants of each: at every pose and whatever the velocities, the torques of
    [willow_mpc_gravity] and those of [Model<WillowTraits>::gravity] with the
    gravity vector (0, 0, -9.81f) differ by at most 2e-6 Nm, and the position that the cost
    weighs is the flange of [Model<WillowTraits>::forwardKinematics] within 1e-7 m. *)
Theorem mpc_model_is_the_arm s w g_out gravity_out T_out y_out :
  let q := take 6 (state_of s w) in
  length w = (nu s + 12)%nat -> length g_out = 6%nat -> length gravity_out = 6%nat -> length T_out = 16%nat -> length y_out = ny s ->
  exists G g T y,
    model_gravity WillowTraits (Some q) (Some [0; 0; down]%R) (Some g_out) = Some (Some G) /\
    call_gravity (O:=mpc_ops) (state_of s w) gravity_out = Some [Some g] /\
    (forall i, (i < 6)%nat -> (Rabs (nth i g 0 - nth i G 0) <= 2 / 1000000)%R) /\
    forwardKinematics WillowTraits (Some q) (Some T_out) = Some (Some T) /\
    call_y (O:=mpc_ops) s w y_out = Some [Some y] /\
    (forall i, (i < 3)%nat -> (Rabs (nth i y 0 - nth (12 + i) T 0) <= 1 / 10000000)%R).
Proof.
  intros q Hw Hg Hgr HT Hy. assert (length (state_of s w) = 12%nat) as Hs by (unfold state_of; rewrite length_drop; lia).
  destruct (gravities_agree q (drop 6 (state_of s w)) g_out gravity_out) as (G & g & HG & Hcall & Hgrav);
    [unfold q; rewrite length_take; lia|rewrite length_drop; lia|done|done|].
  destruct (positions_agree s w T_out y_out Hw HT Hy) as (T & y & HTk & Hyk & Hpos).
  exists G, g, T, y. unfold q in Hcall. rewrite (take_drop 6 (state_of s w)) in Hcall. auto 8.
Qed.

Lemma mpc_model_is_the_arm_witness : exists G g T y,
  model_gravity WillowTraits (Some (rest 6)) (Some [0; 0; down]%R) (Some (rest 6)) = Some (Some G) /\
  call_gravity (O:=mpc_ops) (rest 12) (rest 6) = Some [Some g] /\
  (forall i, (i < 6)%nat -> (Rabs (nth i g 0 - nth i G 0) <= 2 / 1000000)%R) /\
  forwardKinematics WillowTraits (Some (rest 6)) (Some (rest 16)) = Some (Some T) /\
  call_y (O:=mpc_ops) Path (rest 18) (rest 15) = Some [Some y] /\
  (forall i, (i < 3)%nat -> (Rabs (nth i y 0 - nth (12 + i) T 0) <= 1 / 10000000)%R).
Proof. exact (mpc_model_is_the_arm Path (rest 18) (rest 6) (rest 6) (rest 16) (rest 15) eq_refl eq_refl eq_refl eq_refl eq_refl). Defined.

(** ** All generated functions *)

Definition all_generated : list (casadi_function * casadi_interface) :=
  functions_of (generated_of WillowTraits) ++ functions_of (generated_of PantheraTraits) ++ mpc_functions.
Lemma all_well_shaped : forallb well_shaped all_generated = true.
Proof.
  unfold all_generated. rewrite !forallb_app, !functions_well_shaped. exact mpc_functions_well_shaped.
Qed.

(** C21: the generated functions are memory safe and functions of their arguments.  In
    any arithmetic (the program's floats and doubles included), each of the twelve
    functions of either arm and of the ten of the solver, called with arrays of the
    shapes that it declares or null pointers, reads only elements of its arguments
    and variables that it has assigned, and writes only elements of its results;
    it leaves arrays of the same shapes, and nothing of what they held: calls with
    the same arguments leave the same results. *)
Theorem generated_functions_are_safe {F} (O : Ops F) f i args res res' :
  In (f, i) all_generated ->
  Forall2 fits (f_sparsity_in i) args -> Forall2 fits (f_sparsity_out i) res -> Forall2 fits (f_sparsity_out i) res' ->
  map present res = map present res' ->
  exists out, call_casadi (f_code f) args res = Some out /\ call_casadi (f_code f) args res' = Some out /\
    map (fmap length) out = map (fmap length) res.
Proof.
  intros Hin. apply well_shaped_calls. pose proof all_well_shaped as Hw. rewrite forallb_forall in Hw. by apply Hw.
Qed.

(** Gravity, whatever its result held. *)
Lemma generated_functions_are_safe_witness : exists out,
  call_casadi (O:=double_ops (fun _ => S754_zero false) (fun _ => decimal_double 1 0)) (f_code willow_mpc_gravity.1)
    [Some (replicate 12 (S754_zero false))] [Some (replicate 6 (S754_zero true))] = Some out /\
  call_casadi (O:=double_ops (fun _ => S754_zero false) (fun _ => decimal_double 1 0)) (f_code willow_mpc_gravity.1)
    [Some (replicate 12 (S754_zero false))] [Some (replicate 6 (S754_zero false))] = Some out /\
  map (fmap length) out = [Some 6%nat].
Proof.
  refine (generated_functions_are_safe (double_ops (fun _ => S754_zero false) (fun _ => decimal_double 1 0)) _ willow_mpc_gravity.2
    _ _ _ _ _ _ _ eq_refl).
  - do 24 right. left. reflexivity.
  - constructor; [reflexivity|constructor].
  - constructor; [reflexivity|constructor].
  - constructor; [reflexivity|constructor].
Defined.
